(* ===== verification/_CoqProject ===== *)
-Q . S2P
Prelude.v
Lexer.v
Chars.v
Tokens.v
Words.v
Multiline.v
Fragment.v
FragmentSpec.v
FragmentText.v
Scanner.v
ScannerTheorems.v
WordTheorems.v
MultilineTheorems.v
FragmentTheorems.v
CaseTheorems.v
Symbols.v
LexTable.v
LexDfa.v
Regex.v
LexCheck.v
LexTokens.v
LexTheorems.v
LexForms.v
LexLiterals.v
External.v
LexModes.v
Fields.v
PrimaryStates.v
FieldTheorems.v
ParserTheorems.v
DynArray.v
DynArrayTheorems.v
CharRange.v
SymbolSets.v
ParseTypes.v
ParseActions.v
ParseTable1.v
ParseTable2.v
ParseTable3.v
ParseTable4.v
ParseTable5.v
ParseTable6.v
ParseTable7.v
ParseTable8.v
ParseTable9.v
ParseTable10.v
ParseTable11.v
ParseTable12.v
ParseTable.v
SmallSymbols.v
SmallTable1.v
SmallTable2.v
SmallTable3.v
SmallTable4.v
SmallTable5.v
SmallTable6.v
SmallTable7.v
SmallTable8.v
SmallMap.v
SmallTable.v
ActionTheorems.v
ParseRows.v
Language.v
Widths.v
TableTheorems.v
Automaton.v
Acceptance.v
Reductions.v
TokenLoop.v
ParseSteps.v
SyntaxTheorems.v
