(* ===== verification/Prelude.v ===== *)
(** * lint4d: a verification library for the C code of the Pascal parser

    lint4d analyses and formats Delphi and Free Pascal sources.  Every tool of
    the repository reads a source through the tree-sitter parser in
    [src/crates/tree-sitter-pascal], whose C code this library models: the
    hand-written external scanner [src/scanner.c], the lexer and the tables of
    the generated [src/parser.c], and the headers [src/tree_sitter/parser.h]
    and [src/tree_sitter/array.h] both are written against.

    ** The program

    For each token the tree-sitter runtime looks up the lex mode of the parse
    state ([ts_lex_modes]).  It first calls the external scanner with the row
    of acceptable tokens of the external state ([ts_external_scanner_states]);
    the scanner recognises multiline strings, all words (keywords, contextual
    words, identifiers) and conditional-compilation fragments.  If it returns
    [false], the runtime runs the internal lexer [ts_lex] from the lex state:
    literals, punctuation, comments and compiler directives.  Token numbers of
    the scanner are turned into grammar symbols by
    [ts_external_scanner_symbol_map].  The runtime itself, which also
    interprets the LR tables, is not part of the repository: what it promises
    about the lexer object is the class [TSLexerOk], an assumption of the
    theorems that the instance [StrLexer] (a lexer over a character list)
    satisfies and every witness uses.

    ** The files

    - [Prelude.v]: the result monad [res] (a value, a loop cut short, or
      undefined behaviour), machine integers, buffers, input prefixes.
    - [Lexer.v]: [struct TSLexer] as the class [TSLexer], the runtime's promises
      [TSLexerOk], the concrete lexer [StrLexer].
    - [Chars.v], [Tokens.v], [Words.v], [Multiline.v], [Fragment.v], [Scanner.v]:
      [scanner.c], function by function under its own names; the depth loop of
      the entry point is split into [fragment_text], [fragment_bracket],
      [fragment_step], [fragment_loop] and [select_fragment].
    - [Words.v] (second half), [Multiline.v] (second half), [FragmentSpec.v],
      [Scanner.v] (second half): declarative specifications on character lists
      ([classify_word], [multiline_string], [next_item]/[runs]/[fragment_token],
      [token_at]) and the proofs that the code computes them.  [FragmentText.v]:
      the exact texts of the items of a fragment, as a relation.
    - [ScannerTheorems.v], [WordTheorems.v], [MultilineTheorems.v],
      [FragmentTheorems.v], [CaseTheorems.v]: the properties of the scanner.
    - [Symbols.v]: the symbol enumeration, names, public symbols and metadata of
      [parser.c].  [LexTable.v]: the 210 cases of [ts_lex], statement by
      statement.  [External.v]: the external-scanner tables.  [LexModes.v]: the
      lex modes of the 16007 parse states.
    - [LexDfa.v]: the loop the lexer macros of [parser.h] expand to, and its
      refinement to the longest match of an automaton.
    - [Regex.v], [LexCheck.v]: regular expressions, derivatives, and a verified
      check that an automaton recognises given patterns.
    - [LexTokens.v], [LexTheorems.v], [LexForms.v], [LexLiterals.v]: the token
      patterns of [grammar.js], the correctness of [ts_lex] against them, and
      what it means for comments, directives, labels, numbers and
      strings.
    - [Fields.v], [PrimaryStates.v], [FieldTheorems.v]: the field, alias and
      primary-state tables of [parser.c] and their well-formedness.
    - [Language.v]: the language record [tree_sitter_pascal] and the agreement
      of its counts with the tables.
    - [ParserTheorems.v]: the agreement of the scanner with the parser's tables.
    - [ParseTypes.v]: the actions and macros of [parser.h] the LR tables are
      written with.  [ParseActions.v]: [ts_parse_actions].  [ParseTable1.v] to
      [ParseTable12.v], [ParseTable.v]: the 2759 rows of [ts_parse_table], one
      definition each.  [SmallTable1.v] to [SmallTable8.v], [SmallTable.v],
      [SmallMap.v]: the compressed records of the 13248 small states, with the
      counts the source writes, and their indices, with the symbol lists they
      share in [SmallSymbols.v].
      [SymbolSets.v]: sets of symbols for the checks.
    - [ActionTheorems.v], [ParseRows.v], [TableTheorems.v]: the well-formedness
      of the actions, the row of each parse state, and its agreement with the
      scanner and the lexer.
    - [Automaton.v], [Acceptance.v], [Reductions.v]: the LR automaton the tables
      denote, as a step relation on stacks, and its properties.
    - [TokenLoop.v]: reading a file token by token.
    - [ParseSteps.v], [SyntaxTheorems.v]: scanner, lexer and LR tables together,
      as the relation of all steps the tables offer on a stack of states and a
      text, its properties, and an executable driver that reads a program.
    - [Widths.v]: the machine integers of [parser.h] the tables are stored in.
    - [DynArray.v], [DynArrayTheorems.v]: the growable array of [array.h].
    - [CharRange.v]: [set_contains] of [parser.h].

    ** What is proved

    - Scanner: a call terminates, never leaves its buffers and emits exactly
      the token of the specification, which is acceptable and not empty;
      keywords in any letter case, reserved and contextual words, escaped and
      overlong words; printed multiline strings are scanned back and every
      multiline token has the documented shape; a fragment is emitted exactly
      for a text that is cut into items with balanced directives and line breaks
      only in directives, and plain ones are accepted; letter case never
      matters.
    - Lexer: from each of the 38 lex states the parser uses, [ts_lex] returns
      the longest prefix that matches a pattern of the grammar acceptable in the
      state; texts in braces or between parenthesis-star marks are comments or
      directives; numbers are whole tokens and end before a range; printed
      string literals are read back; words are left to the scanner; label
      numbers; the end of input; no text has two token types; reading tokens
      with the scanner and the lexer in any order terminates.
    - Tables: the enumerations of [scanner.c] and [parser.c] agree, every lex
      mode is in range, fragments are emitted in every state that accepts them,
      no external token is dead, public symbols are canonical; field slices and
      child indices are in range, field names are in order and none is dead,
      aliases are visible public symbols, and the counts of the language record
      are the sizes of its tables.
    - LR tables, for all 16007 parse states: the table is well typed; the
      records of the small states are read from the flat array by the counts
      written in it; only the
      last action of a group is not a reduction, and a production names only
      children its reductions have; the scanner is asked for exactly the
      external tokens a state has actions for, so that what it returns can be
      used; every token with an action can be scanned or lexed; a state has the
      transitions of its primary state; every number fits the machine type it
      is stored in.
    - LR automaton: on reachable stacks a reduction never gets stuck, an entry
      for a token always offers an action that is no repetition shift,
      reductions terminate, and only the complete file is accepted.
    - Parsing: every run over a text, whichever of the offered actions it
      follows, has a number of steps linear in the length of the text.
    - Array: every sequence of operations refines lists, up to the first request
      that the allocator refuses, and what happens then; sorted insertion; the
      overflow of integer keys.  Character sets: bisection is membership.

    ** Bounds and fuel

    A loop over the input takes a fuel argument; the theorems hold for every
    fuel above the length of the remaining input (one more for [ts_lex], which
    may take one step at the end of input), so they are statements about the
    unbounded C loops.  Scanner theorems assume an input shorter than [2^32]
    characters, the range of the [unsigned] quote counter and nesting depth.
    The explorations of [LexTokens.v] and [LexTheorems.v] use fixed fuels; the
    checks they feed verify their result, so a fuel that is too small could
    only make a check fail.

    ** What is not modelled

    The tree-sitter runtime is not part of the repository: it drives the LR
    automaton, keeps several stacks where the table has several actions, and
    repairs syntax errors.  [Automaton.v] and [ParseSteps.v] do not model it:
    their steps are those the tables offer, for every choice of actions, also
    repetition shifts, and without repairs or trees, so that they bound what
    any interpreter of the tables can do.
    Not modelled either: the language bindings (registration of the language in
    other runtimes), the choice of allocator in [alloc.h] by the preprocessor
    (the array takes the allocator's answers as a parameter: any request may
    fail),
    the syntax rules of [grammar.js] other than through the tables generated from
    them, and the Rust crates.  In [array.h] an array is never passed twice to
    the same operation, and blocks are lists of elements, not of bytes. *)

From stdpp Require Export base list strings.
From Stdlib Require Export ZArith Lia ZifyBool Ascii.
From Stdlib Require Strings.String.

#[global] Set Default Goal Selector "!".

(** ** Results of C code

    [OutOfFuel] is an artefact of the model (a loop was cut short), while
    [OutOfBounds] is undefined behaviour of the C program: a write outside
    an array.  [Ret] is the only outcome of a well-defined, terminating
    execution. *)
Inductive res (A : Type) : Type :=
  | Ret (a : A)
  | OutOfFuel
  | OutOfBounds.
Arguments Ret {A} a.
Arguments OutOfFuel {A}.
Arguments OutOfBounds {A}.

#[export] Instance res_ret : MRet res := @Ret.
#[export] Instance res_bind : MBind res := λ A B f m,
  match m with
  | Ret a => f a
  | OutOfFuel => OutOfFuel
  | OutOfBounds => OutOfBounds
  end.

Lemma res_bind_ret {A B} (f : A → res B) (a : A) : (Ret a ≫= f) = f a.
Proof. done. Qed.

(** ** Characters and machine integers *)

Declare Scope c_scope.
Delimit Scope c_scope with c.

(** The code points of a C string literal. *)
Definition codes (s : string) : list Z :=
  (λ a, Z.of_N (N_of_ascii a)) <$> Stdlib.Strings.String.list_ascii_of_string s.

(** [c! "x"] is the character constant ['x'], elaborated to its number. *)
Notation "c! s" :=
  (ltac:(let v := eval vm_compute in (List.hd 0%Z (codes s%string)) in exact v))
  (at level 1, s at level 0, only parsing) : c_scope.

(** The control characters the scanner tests. *)
Abbreviation TAB := 9%Z.
Abbreviation LF := 10%Z.
Abbreviation CR := 13%Z.

Open Scope c_scope.
Open Scope Z_scope.

(** [unsigned]/[uint32_t] wrap-around. *)
Definition wrap32 (x : Z) : Z := x mod 2 ^ 32.

Lemma wrap32_small (x : Z) : 0 ≤ x < 2 ^ 32 → wrap32 x = x.
Proof. intros. by apply Z.mod_small. Qed.

(** The conversion [(char) x] for a signed 8-bit [char]. *)
Definition to_char (x : Z) : Z :=
  let y := x mod 256 in if y <? 128 then y else y - 256.

Lemma to_char_ascii (x : Z) : 0 ≤ x < 128 → to_char x = x.
Proof.
  intros. unfold to_char. rewrite Z.mod_small by lia.
  destruct (Z.ltb_spec x 128); lia.
Qed.

(** The conversion [(unsigned char) x]. *)
Definition to_uchar (x : Z) : Z := x mod 256.

(** [tolower] of [ctype.h] in the "C" locale. *)
Definition tolower (c : Z) : Z :=
  if (c! "A" <=? c) && (c <=? c! "Z") then c + 32 else c.

(** ** Fixed-size buffers

    [char buf[n] = {0}] is a list of length [n]; a write outside it is
    undefined behaviour. *)
Definition buf_write (buf : list Z) (i : nat) (c : Z) : res (list Z) :=
  if (i <? length buf)%nat then Ret (<[i:=c]> buf) else OutOfBounds.

(** A buffer of size [n] whose first bytes are [ws] and the others zero. *)
Definition padded (n : nat) (ws : list Z) : list Z :=
  ws ++ replicate (n - length ws) 0.

Lemma padded_length n ws : (length ws ≤ n)%nat → length (padded n ws) = n.
Proof. intros. unfold padded. rewrite length_app, length_replicate. lia. Qed.

Lemma buf_write_padded n ws c :
  (length ws < n)%nat →
  buf_write (padded n ws) (length ws) c = Ret (padded n (ws ++ [c])).
Proof.
  intros Hn. unfold buf_write. rewrite padded_length by lia.
  replace (length ws <? n)%nat with true by (symmetry; apply Nat.ltb_lt; lia).
  f_equal. unfold padded. rewrite length_app; simpl.
  replace (n - length ws)%nat with (S (n - (length ws + 1)))%nat by lia.
  rewrite <- (Nat.add_0_r (length ws)) at 1.
  rewrite insert_app_r. simpl. by rewrite <- (assoc_L (++)).
Qed.

Lemma take_padded n ws : take (length ws) (padded n ws) = ws.
Proof. apply take_app_length. Qed.

(** [memcmp(a, b, n) == 0]. *)
Definition memcmp_eq (a b : list Z) (n : nat) : bool :=
  bool_decide (take n a = take n b).

(** ** Prefixes of the input *)

(** The character a lexer shows on input [cs]: [0] at the end. *)
Definition peek (cs : list Z) : Z :=
  match cs with [] => 0 | c :: _ => c end.

(** The length of the longest prefix whose characters all satisfy [p]. *)
Fixpoint span_len (p : Z → bool) (cs : list Z) : nat :=
  match cs with
  | [] => 0
  | c :: cs' => if p c then S (span_len p cs') else 0
  end.

Section span.
Context (p : Z → bool).

Lemma span_len_le cs : (span_len p cs ≤ length cs)%nat.
Proof. induction cs as [|c cs IH]; simpl; [lia|]. destruct (p c); lia. Qed.

Lemma span_len_take cs : Forall (λ c, p c = true) (take (span_len p cs) cs).
Proof.
  induction cs as [|c cs IH]; simpl; [constructor|].
  destruct (p c) eqn:E; simpl; auto.
Qed.

Lemma span_len_stop cs :
  p 0 = false → p (peek (drop (span_len p cs) cs)) = false.
Proof.
  intros H0. induction cs as [|c cs IH]; simpl; [done|].
  by destruct (p c) eqn:E; simpl.
Qed.

Lemma span_len_peek cs :
  p 0 = false → p (peek cs) = true → ∃ c cs', cs = c :: cs' ∧ p c = true.
Proof. destruct cs as [|c cs]; simpl; [congruence|]. eauto. Qed.

Lemma span_len_app w cs :
  Forall (λ c, p c = true) w → p (peek cs) = false ∨ cs = [] →
  span_len p (w ++ cs) = length w.
Proof.
  intros Hw Hcs. induction Hw as [|c w Hc _ IH]; simpl.
  - destruct Hcs as [Hcs| ->]; [|done].
    destruct cs as [|c cs]; simpl in *; [done|]. by rewrite Hcs.
  - rewrite Hc. by rewrite IH.
Qed.

Lemma span_len_drop cs n :
  (n ≤ span_len p cs)%nat →
  span_len p (drop n cs) = (span_len p cs - n)%nat.
Proof.
  revert n. induction cs as [|c cs IH]; intros [|n]; simpl; try lia.
  destruct (p c); intros; [|lia]. rewrite IH; lia.
Qed.

Lemma span_len_pos cs :
  p 0 = false → p (peek cs) = true → (0 < span_len p cs)%nat.
Proof. intros H0. destruct cs; simpl; [congruence|]. intros ->. lia. Qed.
End span.

Lemma peek_nonzero_length (cs : list Z) : peek cs ≠ 0 → (0 < length cs)%nat.
Proof. destruct cs; simpl; [done|lia]. Qed.

(** A visible character after [n] others: the input is longer than [n]. *)
Lemma peek_drop_length n (cs : list Z) :
  peek (drop n cs) ≠ 0 → (n < length cs)%nat.
Proof. intros Hp%peek_nonzero_length. rewrite length_drop in Hp. lia. Qed.

Lemma drop_tail {A} (cs : list A) : drop 1 cs = tail cs.
Proof. by destruct cs. Qed.

(** ** Automation *)

(** Closes a closed side condition by evaluating it. *)
Ltac concrete :=
  first [ by vm_compute | vm_compute; lia | apply (bool_decide_unpack _); by vm_compute ].
