(* ===== verification/Lexer.v ===== *)
(** * The lexer interface of [tree_sitter/parser.h] *)

From S2P Require Import Prelude.

(** The fields and function pointers of [struct TSLexer] that the scanner
    and the generated lexer use. *)
Class TSLexer (L : Type) := {
  lookahead : L → Z;
  result_symbol : L → Z;
  set_result_symbol : Z → L → L;
  advance : bool → L → L;
  mark_end : L → L;
  eof : L → bool;
}.

(** What the runtime promises about them. *)
Class TSLexerOk (L : Type) `{TSLexer L} := {
  rest : L → list Z;
  token_end : L → list Z;
  lookahead_rest l : lookahead l = peek (rest l);
  eof_rest l : eof l = match rest l with [] => true | _ => false end;
  rest_advance b l : rest (advance b l) = tail (rest l);
  rest_mark_end l : rest (mark_end l) = rest l;
  rest_set_result s l : rest (set_result_symbol s l) = rest l;
  token_end_advance b l : token_end (advance b l) = token_end l;
  token_end_mark_end l : token_end (mark_end l) = rest l;
  token_end_set_result s l : token_end (set_result_symbol s l) = token_end l;
  result_advance b l : result_symbol (advance b l) = result_symbol l;
  result_mark_end l : result_symbol (mark_end l) = result_symbol l;
  result_set_result s l : result_symbol (set_result_symbol s l) = s;
}.

Create Rewrite HintDb lexer.
#[export] Hint Rewrite @lookahead_rest @eof_rest @rest_advance @rest_mark_end
  @rest_set_result @token_end_advance @token_end_mark_end @token_end_set_result
  @result_advance @result_mark_end @result_set_result using typeclasses eauto
  : lexer.

Section ops.
Context `{TSLexer L}.

(** [advance] called [n] times. *)
Fixpoint advs (n : nat) (l : L) : L :=
  match n with
  | O => l
  | S n' => advs n' (advance false l)
  end.

(** The loop [while (p(lexer->lookahead)) lexer->advance(lexer, false);]. *)
Fixpoint skip_while (p : Z → bool) (fuel : nat) (l : L) : res L :=
  match fuel with
  | O => OutOfFuel
  | S f => if p (lookahead l) then skip_while p f (advance false l) else Ret l
  end.
End ops.

Section laws.
Context `{TSLexerOk L}.
Implicit Types l : L.

Lemma advs_add n m l : advs (n + m) l = advs m (advs n l).
Proof. revert l. induction n as [|n IH]; intros l; simpl; auto. Qed.

Lemma advs_1 l : advance false l = advs 1 l.
Proof. done. Qed.

Lemma rest_advs n l : rest (advs n l) = drop n (rest l).
Proof.
  revert l. induction n as [|n IH]; intros l; simpl; [by rewrite drop_0|].
  rewrite IH, rest_advance. by destruct (rest l); simpl; rewrite ?drop_nil.
Qed.

Lemma token_end_advs n l : token_end (advs n l) = token_end l.
Proof.
  revert l. induction n as [|n IH]; intros l; simpl; [done|].
  by rewrite IH, token_end_advance.
Qed.

Lemma result_advs n l : result_symbol (advs n l) = result_symbol l.
Proof.
  revert l. induction n as [|n IH]; intros l; simpl; [done|].
  by rewrite IH, result_advance.
Qed.

(** The loop stops exactly at the first character that fails the test, for
    every input, provided the test fails on the end-of-input marker. *)
Lemma skip_while_spec p fuel l :
  p 0 = false → (length (rest l) < fuel)%nat →
  skip_while p fuel l = Ret (advs (span_len p (rest l)) l).
Proof.
  intros Hp. revert l. induction fuel as [|f IH]; intros l Hf; [lia|]. simpl.
  rewrite lookahead_rest. destruct (rest l) as [|c cs] eqn:E; simpl.
  - by rewrite Hp.
  - destruct (p c); [|done].
    rewrite IH; rewrite rest_advance, E; simpl in *; [done|lia].
Qed.
End laws.

#[export] Hint Rewrite @rest_advs @token_end_advs @result_advs
  using typeclasses eauto : lexer.

(** ** A lexer over a character list

    The instance used to evaluate the scanner on concrete inputs. *)
Record StrLexer := MkStrLexer {
  str_rest : list Z;
  str_end : list Z;
  str_symbol : Z;
}.

#[export] Instance StrLexer_ops : TSLexer StrLexer := {
  lookahead l := peek (str_rest l);
  result_symbol := str_symbol;
  set_result_symbol s l := MkStrLexer (str_rest l) (str_end l) s;
  advance _ l := MkStrLexer (tail (str_rest l)) (str_end l) (str_symbol l);
  mark_end l := MkStrLexer (str_rest l) (str_rest l) (str_symbol l);
  eof l := match str_rest l with [] => true | _ => false end;
}.

#[export] Instance StrLexer_ok : TSLexerOk StrLexer.
Proof. by refine {| rest := str_rest; token_end := str_end |}. Defined.

(** A fresh lexer on the text [s]. *)
Definition str_lexer (s : string) : StrLexer := MkStrLexer (codes s) [] 0.
