(* ===== verification/Chars.v ===== *)
(** * Character classes and keyword reading of [scanner.c]

    The character predicates are the [static inline] functions of the
    scanner; [read_ascii_keyword] fills a caller's buffer with lower-cased
    letters.  [read_ascii_keyword_spec] gives its result on every input and
    shows that it stays within any buffer larger than its capacity. *)

From S2P Require Import Prelude.
From S2P Require Import Lexer.

Definition is_ascii_letter (c : Z) : bool :=
  (c! "a" <=? c) && (c <=? c! "z") || (c! "A" <=? c) && (c <=? c! "Z").

Definition is_identifier_start (c : Z) : bool :=
  is_ascii_letter c || (c =? c! "_").

Definition is_identifier_continue (c : Z) : bool :=
  is_identifier_start c || (c! "0" <=? c) && (c <=? c! "9") || (c =? c! "$").

Definition is_space_or_newline (c : Z) : bool :=
  (c =? c! " ") || (c =? TAB) || (c =? CR) || (c =? LF).

Definition is_blank (c : Z) : bool := (c =? c! " ") || (c =? TAB).

(** Arithmetic about the predicates: [lia] decides it once they are unfolded. *)
Ltac char_lia :=
  unfold is_identifier_continue, is_identifier_start, is_ascii_letter,
    is_space_or_newline, is_blank, tolower in *;
  repeat match goal with
  | |- context [if ?b then _ else _] => destruct b eqn:?
  | H : context [if ?b then _ else _] |- _ => destruct b eqn:?
  end; lia.

Lemma is_identifier_continue_ascii c :
  is_identifier_continue c = true → 0 < c < 128.
Proof. char_lia. Qed.

Lemma is_ascii_letter_continue c :
  is_ascii_letter c = true → is_identifier_continue c = true.
Proof. unfold is_identifier_continue, is_identifier_start. by intros ->. Qed.

Lemma is_ascii_letter_tolower c :
  is_ascii_letter (tolower c) = is_ascii_letter c.
Proof. char_lia. Qed.

Lemma is_identifier_start_tolower c :
  is_identifier_start (tolower c) = is_identifier_start c.
Proof. char_lia. Qed.

Lemma is_identifier_continue_tolower c :
  is_identifier_continue (tolower c) = is_identifier_continue c.
Proof. char_lia. Qed.

(** The byte [scan_word_token] stores for an identifier character is its
    lower-case form: the casts lose nothing on ASCII input. *)
Lemma stored_char c :
  is_identifier_continue c = true →
  to_char (if is_ascii_letter c then tolower (to_uchar c) else c) = tolower c.
Proof.
  intros Hc. pose proof (is_identifier_continue_ascii c Hc).
  unfold to_uchar. rewrite Z.mod_small by lia.
  destruct (is_ascii_letter c) eqn:E.
  - apply to_char_ascii. char_lia.
  - rewrite to_char_ascii by lia. char_lia.
Qed.

Section keyword.
Context `{TSLexer L}.

Fixpoint read_ascii_keyword_loop (fuel : nat) (l : L) (buf : list Z)
    (cap len : nat) : res (list Z * nat * L) :=
  match fuel with
  | O => OutOfFuel
  | S f =>
    if (len <? cap)%nat && is_ascii_letter (lookahead l) then
      buf' ← buf_write buf len (to_char (tolower (to_uchar (lookahead l))));
      read_ascii_keyword_loop f (advance false l) buf' cap (S len)
    else Ret (buf, len, l)
  end.

(** The loop runs at most [cap] times, so its fuel does not depend on the
    input. *)
Definition read_ascii_keyword (l : L) (buf : list Z) (cap : nat)
    : res (list Z * nat * L) :=
  read_ascii_keyword_loop (S cap) l buf cap 0.
End keyword.

(** The letters [read_ascii_keyword] reads from [cs]. *)
Definition keyword_of (cap : nat) (cs : list Z) : list Z :=
  tolower <$> take (min cap (span_len is_ascii_letter cs)) cs.

Lemma keyword_of_length cap cs :
  length (keyword_of cap cs) = min cap (span_len is_ascii_letter cs).
Proof.
  unfold keyword_of. rewrite length_fmap, length_take.
  pose proof (span_len_le is_ascii_letter cs). lia.
Qed.

Lemma keyword_of_S cap c cs :
  is_ascii_letter c = true →
  keyword_of (S cap) (c :: cs) = tolower c :: keyword_of cap cs.
Proof. intros Hc. unfold keyword_of. simpl. by rewrite Hc. Qed.

Lemma keyword_of_stop cap cs :
  is_ascii_letter (peek cs) = false → keyword_of cap cs = [].
Proof.
  intros Hc. unfold keyword_of. destruct cs as [|c cs]; simpl in *.
  - by rewrite take_nil.
  - by rewrite Hc, Nat.min_0_r.
Qed.

Section keyword_laws.
Context `{TSLexerOk L}.

Lemma read_ascii_keyword_loop_spec n ws fuel l cap :
  (length ws ≤ cap)%nat → (cap < n)%nat → (cap < fuel + length ws)%nat →
  read_ascii_keyword_loop fuel l (padded n ws) cap (length ws)
  = let kw := keyword_of (cap - length ws) (rest l) in
    Ret (padded n (ws ++ kw), length (ws ++ kw), advs (length kw) l).
Proof.
  intros Hws Hn. revert ws l Hws.
  induction fuel as [|f IH]; intros ws l Hws Hf; [lia|]. cbn zeta.
  simpl. rewrite lookahead_rest.
  destruct (Nat.ltb_spec (length ws) cap) as [Hlt|Hge]; simpl.
  - destruct (is_ascii_letter (peek (rest l))) eqn:Hc; simpl.
    + destruct (rest l) as [|c cs] eqn:E; simpl in Hc; [done|]. simpl peek.
      rewrite buf_write_padded, res_bind_ret by lia.
      pose proof (is_identifier_continue_ascii _ (is_ascii_letter_continue _ Hc)).
      pose proof (stored_char _ (is_ascii_letter_continue _ Hc)) as Hs.
      rewrite Hc in Hs. rewrite Hs.
      replace (S (length ws)) with (length (ws ++ [tolower c]))
        by (rewrite length_app; simpl; lia).
      rewrite IH by (rewrite length_app; simpl; lia). cbn zeta.
      rewrite rest_advance, E. simpl tail. rewrite length_app. simpl length.
      replace (cap - length ws)%nat with (S (cap - (length ws + 1)))%nat by lia.
      rewrite keyword_of_S by done.
      by rewrite <- (assoc_L (++)).
    + rewrite keyword_of_stop by done. by rewrite app_nil_r.
  - replace (cap - length ws)%nat with 0%nat by lia.
    replace (keyword_of 0 (rest l)) with (@nil Z) by done.
    by rewrite app_nil_r.
Qed.

Lemma read_ascii_keyword_spec n l cap :
  (cap < n)%nat →
  read_ascii_keyword l (padded n []) cap
  = let kw := keyword_of cap (rest l) in
    Ret (padded n kw, length kw, advs (length kw) l).
Proof.
  intros Hn. unfold read_ascii_keyword.
  pose proof (read_ascii_keyword_loop_spec n [] (S cap) l cap) as Hs.
  simpl length in Hs. rewrite Hs by lia. cbn zeta. by rewrite Nat.sub_0_r.
Qed.
End keyword_laws.

(** [memcmp] against a filled buffer, guarded by the length test, is equality
    with the text. *)
Lemma memcmp_padded n t w :
  (length t =? length w)%nat && memcmp_eq t (padded n w) (length w)
  = bool_decide (t = w).
Proof.
  unfold memcmp_eq. rewrite take_padded.
  destruct (Nat.eqb_spec (length t) (length w)) as [Hl|Hl]; simpl.
  - rewrite <- Hl, firstn_all. done.
  - symmetry. apply bool_decide_eq_false. congruence.
Qed.
