(* ===== verification/Tokens.v ===== *)
(** * The token types and word tables of [scanner.c]

    [TokenType] is the enumeration of the external tokens, in the order the
    C enum declares them; [token_index] is the integer the C compiler gives
    each enumerator.  The three word tables are transcribed entry by entry.
    The facts at the end are what the scanner's lookups rely on: the tables
    have no duplicates, the contextual and the reserved words are disjoint,
    and every word fits the 32-byte buffer of [scan_word_token]. *)

From S2P Require Import Prelude.

Inductive TokenType : Set :=
  | PP_FRAGMENT_EXPR | PP_FRAGMENT_STMT | LITERAL_STRING_MULTILINE
  | IDENTIFIER | KCONSTREF | KOUT | KABSOLUTE | KREAD | KWRITE
  | KIMPLEMENTS | KDEFAULT | KNODEFAULT | KSTORED | KINDEX | KDISPID
  | KOBJCCLASS | KOBJCCATEGORY | KOBJCPROTOCOL | KHELPER | KGENERIC
  | KSPECIALIZE | KOTHERWISE | KRAISEAT | KON | KOPERATOR | KREFERENCE
  | KPUBLISHED | KPUBLIC | KPROTECTED | KPRIVATE | KSTRICT | KREQUIRED
  | KOPTIONAL | KFORWARD | KSTATIC | KVIRTUAL | KABSTRACT | KSEALED
  | KDYNAMIC | KOVERRIDE | KOVERLOAD | KREINTRODUCE | KSTDCALL | KCDECL
  | KCPPDECL | KPASCAL | KREGISTER | KMWPASCAL | KEXTERNAL | KNAME
  | KMESSAGE | KDEPRECATED | KEXPERIMENTAL | KPLATFORM | KUNIMPLEMENTED
  | KCVAR | KEXPORT | KFAR | KNEAR | KSAFECALL | KASSEMBLER | KNOSTACKFRAME
  | KINTERRUPT | KNORETURN | KIOCHECK | KLOCAL | KHARDFLOAT | KSOFTFLOAT
  | KMS_ABI_DEFAULT | KMS_ABI_CDECL | KSAVEREGISTERS | KSYSV_ABI_DEFAULT
  | KSYSV_ABI_CDECL | KVECTORCALL | KVARARGS | KWINAPI | KALIAS | KDELAYED
  | KTRUE | KFALSE | KAND | KARRAY | KAS | KASM | KBEGIN | KCASE | KCLASS
  | KCONST | KCONSTRUCTOR | KDESTRUCTOR | KDISPINTERFACE | KDIV | KDO
  | KDOWNTO | KELSE | KEND | KEXCEPT | KEXPORTS | KFILE | KFINALIZATION
  | KFINALLY | KFOR | KFUNCTION | KGOTO | KIF | KIMPLEMENTATION | KIN
  | KINHERITED | KINITIALIZATION | KINLINE | KINTERFACE | KIS | KLABEL
  | KLIBRARY | KMOD | KNIL | KNOT | KOBJECT | KOF | KOR | KPACKED
  | KPROCEDURE | KPROGRAM | KPROPERTY | KRAISE | KRECORD | KREPEAT
  | KRESOURCESTRING | KSET | KSHL | KSHR | KSTRING | KTHEN | KTHREADVAR
  | KTO | KTRY | KTYPE | KUNIT | KUNTIL | KUSES | KVAR | KWHILE | KWITH
  | KXOR.

(** The value of an enumerator. *)
Definition token_index (t : TokenType) : nat :=
  match t with
  | PP_FRAGMENT_EXPR => 0 | PP_FRAGMENT_STMT => 1
  | LITERAL_STRING_MULTILINE => 2 | IDENTIFIER => 3 | KCONSTREF => 4
  | KOUT => 5 | KABSOLUTE => 6 | KREAD => 7 | KWRITE => 8
  | KIMPLEMENTS => 9 | KDEFAULT => 10 | KNODEFAULT => 11 | KSTORED => 12
  | KINDEX => 13 | KDISPID => 14 | KOBJCCLASS => 15 | KOBJCCATEGORY => 16
  | KOBJCPROTOCOL => 17 | KHELPER => 18 | KGENERIC => 19
  | KSPECIALIZE => 20 | KOTHERWISE => 21 | KRAISEAT => 22 | KON => 23
  | KOPERATOR => 24 | KREFERENCE => 25 | KPUBLISHED => 26 | KPUBLIC => 27
  | KPROTECTED => 28 | KPRIVATE => 29 | KSTRICT => 30 | KREQUIRED => 31
  | KOPTIONAL => 32 | KFORWARD => 33 | KSTATIC => 34 | KVIRTUAL => 35
  | KABSTRACT => 36 | KSEALED => 37 | KDYNAMIC => 38 | KOVERRIDE => 39
  | KOVERLOAD => 40 | KREINTRODUCE => 41 | KSTDCALL => 42 | KCDECL => 43
  | KCPPDECL => 44 | KPASCAL => 45 | KREGISTER => 46 | KMWPASCAL => 47
  | KEXTERNAL => 48 | KNAME => 49 | KMESSAGE => 50 | KDEPRECATED => 51
  | KEXPERIMENTAL => 52 | KPLATFORM => 53 | KUNIMPLEMENTED => 54
  | KCVAR => 55 | KEXPORT => 56 | KFAR => 57 | KNEAR => 58
  | KSAFECALL => 59 | KASSEMBLER => 60 | KNOSTACKFRAME => 61
  | KINTERRUPT => 62 | KNORETURN => 63 | KIOCHECK => 64 | KLOCAL => 65
  | KHARDFLOAT => 66 | KSOFTFLOAT => 67 | KMS_ABI_DEFAULT => 68
  | KMS_ABI_CDECL => 69 | KSAVEREGISTERS => 70 | KSYSV_ABI_DEFAULT => 71
  | KSYSV_ABI_CDECL => 72 | KVECTORCALL => 73 | KVARARGS => 74
  | KWINAPI => 75 | KALIAS => 76 | KDELAYED => 77 | KTRUE => 78
  | KFALSE => 79 | KAND => 80 | KARRAY => 81 | KAS => 82 | KASM => 83
  | KBEGIN => 84 | KCASE => 85 | KCLASS => 86 | KCONST => 87
  | KCONSTRUCTOR => 88 | KDESTRUCTOR => 89 | KDISPINTERFACE => 90
  | KDIV => 91 | KDO => 92 | KDOWNTO => 93 | KELSE => 94 | KEND => 95
  | KEXCEPT => 96 | KEXPORTS => 97 | KFILE => 98 | KFINALIZATION => 99
  | KFINALLY => 100 | KFOR => 101 | KFUNCTION => 102 | KGOTO => 103
  | KIF => 104 | KIMPLEMENTATION => 105 | KIN => 106 | KINHERITED => 107
  | KINITIALIZATION => 108 | KINLINE => 109 | KINTERFACE => 110
  | KIS => 111 | KLABEL => 112 | KLIBRARY => 113 | KMOD => 114
  | KNIL => 115 | KNOT => 116 | KOBJECT => 117 | KOF => 118 | KOR => 119
  | KPACKED => 120 | KPROCEDURE => 121 | KPROGRAM => 122 | KPROPERTY => 123
  | KRAISE => 124 | KRECORD => 125 | KREPEAT => 126
  | KRESOURCESTRING => 127 | KSET => 128 | KSHL => 129 | KSHR => 130
  | KSTRING => 131 | KTHEN => 132 | KTHREADVAR => 133 | KTO => 134
  | KTRY => 135 | KTYPE => 136 | KUNIT => 137 | KUNTIL => 138
  | KUSES => 139 | KVAR => 140 | KWHILE => 141 | KWITH => 142 | KXOR => 143
  end.

(** Every enumerator, in order. *)
Definition all_tokens : list TokenType :=
  [
   PP_FRAGMENT_EXPR; PP_FRAGMENT_STMT; LITERAL_STRING_MULTILINE;
   IDENTIFIER; KCONSTREF; KOUT; KABSOLUTE; KREAD; KWRITE; KIMPLEMENTS;
   KDEFAULT; KNODEFAULT; KSTORED; KINDEX; KDISPID; KOBJCCLASS;
   KOBJCCATEGORY; KOBJCPROTOCOL; KHELPER; KGENERIC; KSPECIALIZE;
   KOTHERWISE; KRAISEAT; KON; KOPERATOR; KREFERENCE; KPUBLISHED; KPUBLIC;
   KPROTECTED; KPRIVATE; KSTRICT; KREQUIRED; KOPTIONAL; KFORWARD; KSTATIC;
   KVIRTUAL; KABSTRACT; KSEALED; KDYNAMIC; KOVERRIDE; KOVERLOAD;
   KREINTRODUCE; KSTDCALL; KCDECL; KCPPDECL; KPASCAL; KREGISTER; KMWPASCAL;
   KEXTERNAL; KNAME; KMESSAGE; KDEPRECATED; KEXPERIMENTAL; KPLATFORM;
   KUNIMPLEMENTED; KCVAR; KEXPORT; KFAR; KNEAR; KSAFECALL; KASSEMBLER;
   KNOSTACKFRAME; KINTERRUPT; KNORETURN; KIOCHECK; KLOCAL; KHARDFLOAT;
   KSOFTFLOAT; KMS_ABI_DEFAULT; KMS_ABI_CDECL; KSAVEREGISTERS;
   KSYSV_ABI_DEFAULT; KSYSV_ABI_CDECL; KVECTORCALL; KVARARGS; KWINAPI;
   KALIAS; KDELAYED; KTRUE; KFALSE; KAND; KARRAY; KAS; KASM; KBEGIN; KCASE;
   KCLASS; KCONST; KCONSTRUCTOR; KDESTRUCTOR; KDISPINTERFACE; KDIV; KDO;
   KDOWNTO; KELSE; KEND; KEXCEPT; KEXPORTS; KFILE; KFINALIZATION; KFINALLY;
   KFOR; KFUNCTION; KGOTO; KIF; KIMPLEMENTATION; KIN; KINHERITED;
   KINITIALIZATION; KINLINE; KINTERFACE; KIS; KLABEL; KLIBRARY; KMOD; KNIL;
   KNOT; KOBJECT; KOF; KOR; KPACKED; KPROCEDURE; KPROGRAM; KPROPERTY;
   KRAISE; KRECORD; KREPEAT; KRESOURCESTRING; KSET; KSHL; KSHR; KSTRING;
   KTHEN; KTHREADVAR; KTO; KTRY; KTYPE; KUNIT; KUNTIL; KUSES; KVAR; KWHILE;
   KWITH; KXOR
  ].

Definition EXTERNAL_TOKEN_COUNT : nat := 144.

Record ContextualWord := MkContextual { text : string; token : TokenType }.

Record DccReservedWord := MkReserved { rtext : string; rtoken : TokenType }.

Definition CONTEXTUAL_WORDS : list ContextualWord :=
  [
   MkContextual "constref" KCONSTREF; MkContextual "out" KOUT;
   MkContextual "absolute" KABSOLUTE; MkContextual "read" KREAD;
   MkContextual "write" KWRITE; MkContextual "implements" KIMPLEMENTS;
   MkContextual "default" KDEFAULT; MkContextual "nodefault" KNODEFAULT;
   MkContextual "stored" KSTORED; MkContextual "index" KINDEX;
   MkContextual "dispid" KDISPID; MkContextual "objcclass" KOBJCCLASS;
   MkContextual "objccategory" KOBJCCATEGORY;
   MkContextual "objcprotocol" KOBJCPROTOCOL;
   MkContextual "helper" KHELPER; MkContextual "generic" KGENERIC;
   MkContextual "specialize" KSPECIALIZE;
   MkContextual "otherwise" KOTHERWISE; MkContextual "at" KRAISEAT;
   MkContextual "on" KON; MkContextual "operator" KOPERATOR;
   MkContextual "reference" KREFERENCE;
   MkContextual "published" KPUBLISHED; MkContextual "public" KPUBLIC;
   MkContextual "protected" KPROTECTED; MkContextual "private" KPRIVATE;
   MkContextual "strict" KSTRICT; MkContextual "required" KREQUIRED;
   MkContextual "optional" KOPTIONAL; MkContextual "forward" KFORWARD;
   MkContextual "static" KSTATIC; MkContextual "virtual" KVIRTUAL;
   MkContextual "abstract" KABSTRACT; MkContextual "sealed" KSEALED;
   MkContextual "dynamic" KDYNAMIC; MkContextual "override" KOVERRIDE;
   MkContextual "overload" KOVERLOAD;
   MkContextual "reintroduce" KREINTRODUCE;
   MkContextual "stdcall" KSTDCALL; MkContextual "cdecl" KCDECL;
   MkContextual "cppdecl" KCPPDECL; MkContextual "pascal" KPASCAL;
   MkContextual "register" KREGISTER; MkContextual "mwpascal" KMWPASCAL;
   MkContextual "external" KEXTERNAL; MkContextual "name" KNAME;
   MkContextual "message" KMESSAGE; MkContextual "deprecated" KDEPRECATED;
   MkContextual "experimental" KEXPERIMENTAL;
   MkContextual "platform" KPLATFORM;
   MkContextual "unimplemented" KUNIMPLEMENTED; MkContextual "cvar" KCVAR;
   MkContextual "export" KEXPORT; MkContextual "far" KFAR;
   MkContextual "near" KNEAR; MkContextual "safecall" KSAFECALL;
   MkContextual "assembler" KASSEMBLER;
   MkContextual "nostackframe" KNOSTACKFRAME;
   MkContextual "interrupt" KINTERRUPT; MkContextual "noreturn" KNORETURN;
   MkContextual "iocheck" KIOCHECK; MkContextual "local" KLOCAL;
   MkContextual "hardfloat" KHARDFLOAT;
   MkContextual "softfloat" KSOFTFLOAT;
   MkContextual "ms_abi_default" KMS_ABI_DEFAULT;
   MkContextual "ms_abi_cdecl" KMS_ABI_CDECL;
   MkContextual "saveregisters" KSAVEREGISTERS;
   MkContextual "sysv_abi_default" KSYSV_ABI_DEFAULT;
   MkContextual "sysv_abi_cdecl" KSYSV_ABI_CDECL;
   MkContextual "vectorcall" KVECTORCALL; MkContextual "varargs" KVARARGS;
   MkContextual "winapi" KWINAPI; MkContextual "alias" KALIAS;
   MkContextual "delayed" KDELAYED; MkContextual "true" KTRUE;
   MkContextual "false" KFALSE
  ].

Definition DCC_RESERVED_WORDS : list DccReservedWord :=
  [
   MkReserved "and" KAND; MkReserved "array" KARRAY; MkReserved "as" KAS;
   MkReserved "asm" KASM; MkReserved "begin" KBEGIN;
   MkReserved "case" KCASE; MkReserved "class" KCLASS;
   MkReserved "const" KCONST; MkReserved "constructor" KCONSTRUCTOR;
   MkReserved "destructor" KDESTRUCTOR;
   MkReserved "dispinterface" KDISPINTERFACE; MkReserved "div" KDIV;
   MkReserved "do" KDO; MkReserved "downto" KDOWNTO;
   MkReserved "else" KELSE; MkReserved "end" KEND;
   MkReserved "except" KEXCEPT; MkReserved "exports" KEXPORTS;
   MkReserved "file" KFILE; MkReserved "finalization" KFINALIZATION;
   MkReserved "finally" KFINALLY; MkReserved "for" KFOR;
   MkReserved "function" KFUNCTION; MkReserved "goto" KGOTO;
   MkReserved "if" KIF; MkReserved "implementation" KIMPLEMENTATION;
   MkReserved "in" KIN; MkReserved "inherited" KINHERITED;
   MkReserved "initialization" KINITIALIZATION;
   MkReserved "inline" KINLINE; MkReserved "interface" KINTERFACE;
   MkReserved "is" KIS; MkReserved "label" KLABEL;
   MkReserved "library" KLIBRARY; MkReserved "mod" KMOD;
   MkReserved "nil" KNIL; MkReserved "not" KNOT;
   MkReserved "object" KOBJECT; MkReserved "of" KOF; MkReserved "or" KOR;
   MkReserved "packed" KPACKED; MkReserved "procedure" KPROCEDURE;
   MkReserved "program" KPROGRAM; MkReserved "property" KPROPERTY;
   MkReserved "raise" KRAISE; MkReserved "record" KRECORD;
   MkReserved "repeat" KREPEAT;
   MkReserved "resourcestring" KRESOURCESTRING; MkReserved "set" KSET;
   MkReserved "shl" KSHL; MkReserved "shr" KSHR;
   MkReserved "string" KSTRING; MkReserved "then" KTHEN;
   MkReserved "threadvar" KTHREADVAR; MkReserved "to" KTO;
   MkReserved "try" KTRY; MkReserved "type" KTYPE; MkReserved "unit" KUNIT;
   MkReserved "until" KUNTIL; MkReserved "uses" KUSES;
   MkReserved "var" KVAR; MkReserved "while" KWHILE;
   MkReserved "with" KWITH; MkReserved "xor" KXOR
  ].

Definition ROUTINE_DIRECTIVES : list string :=
  [
   "abstract"; "assembler"; "cdecl"; "cppdecl"; "deprecated"; "dynamic";
   "experimental"; "far"; "hardfloat"; "inline"; "interrupt"; "iocheck";
   "local"; "mwpascal"; "near"; "noreturn"; "nostackframe"; "overload";
   "override"; "pascal"; "platform"; "register"; "reintroduce"; "safecall";
   "saveregisters"; "softfloat"; "static"; "stdcall"; "unimplemented";
   "varargs"; "vectorcall"; "virtual"; "winapi"
  ].

(** ** Facts about the enumeration *)

Lemma all_tokens_lookup t : all_tokens !! token_index t = Some t.
Proof. by destruct t. Qed.

#[export] Instance token_index_inj : Inj (=) (=) token_index.
Proof.
  intros t1 t2 Heq. apply (inj Some).
  by rewrite <- !all_tokens_lookup, Heq.
Qed.

#[export] Instance TokenType_eq_dec : EqDecision TokenType.
Proof.
  refine (λ t1 t2, cast_if (decide (token_index t1 = token_index t2))).
  - by apply (inj token_index).
  - congruence.
Defined.

Lemma token_index_lt t : (token_index t < EXTERNAL_TOKEN_COUNT)%nat.
Proof. apply Nat.ltb_lt. by destruct t. Qed.

Lemma elem_of_all_tokens t : t ∈ all_tokens.
Proof. apply list_elem_of_lookup. eauto using all_tokens_lookup. Qed.

(** ** Facts about the word tables *)

(** All table entries, contextual words first, as (text, token) pairs. *)
Definition all_words : list (list Z * TokenType) :=
  ((λ w, (codes (text w), token w)) <$> CONTEXTUAL_WORDS)
  ++ ((λ w, (codes (rtext w), rtoken w)) <$> DCC_RESERVED_WORDS).

Lemma all_words_nodup : NoDup all_words.*1.
Proof. apply (bool_decide_unpack _). by vm_compute. Qed.

Lemma all_words_tokens_nodup : NoDup all_words.*2.
Proof. apply (bool_decide_unpack _). by vm_compute. Qed.

(** Lower-case ASCII letters and underscores: the alphabet of the tables. *)
Definition is_table_char (c : Z) : bool :=
  (c! "a" <=? c) && (c <=? c! "z") || (c =? c! "_").

Lemma all_words_chars w t :
  (w, t) ∈ all_words →
  (0 < length w ≤ 31)%nat ∧ Forall (λ c, is_table_char c = true) w.
Proof.
  intros Hw.
  assert (Forall (λ x : list Z * TokenType, (0 < length x.1 ≤ 31)%nat
    ∧ Forall (λ c, is_table_char c = true) x.1) all_words) as Hall.
  { apply (bool_decide_unpack _). by vm_compute. }
  by apply (proj1 (Forall_forall _ _) Hall) in Hw.
Qed.
