(* ===== verification/Words.v ===== *)
(** * Word tokens: [scan_word_token] of [scanner.c]

    The scanner reads a maximal run of identifier characters into a 32-byte
    buffer, lower-casing letters, and looks it up among the contextual and
    the reserved words.  [classify_word] is the specification on the word as
    a list of characters; [scan_word_token_spec] is the refinement theorem
    that the buffer code implements it on every input, and the lemmas after
    it are the laws of the specification the clients use. *)

From S2P Require Import Prelude.
From S2P Require Import Lexer.
From S2P Require Import Chars.
From S2P Require Import Tokens.

Inductive WordScanResult : Set :=
  | WORD_NOT_APPLICABLE
  | WORD_NO_TOKEN
  | WORD_EMITTED.

(** [valid_symbols], an array indexed by [TokenType]. *)
Abbreviation symbols := (TokenType → bool).

(** [strlen(t) == len && memcmp(t, word, len) == 0]. *)
Definition text_match (t word : list Z) (len : nat) : bool :=
  (length t =? len)%nat && memcmp_eq t word len.

Definition find_dcc_reserved_word (word : list Z) (len : nat)
    : option DccReservedWord :=
  List.find (λ candidate, text_match (codes (rtext candidate)) word len)
    DCC_RESERVED_WORDS.

(** [sizeof(word)]. *)
Definition sizeof_word : nat := 32.

Section code.
Context `{TSLexer L}.

(** [lexer->result_symbol = t]. *)
Definition emit (t : TokenType) (l : L) : L :=
  set_result_symbol (Z.of_nat (token_index t)) l.

(** The [while (is_identifier_continue(lexer->lookahead))] loop. *)
Fixpoint scan_word_loop (fuel : nat) (l : L) (word : list Z) (len : nat)
    (too_long : bool) : res (list Z * nat * bool * L) :=
  match fuel with
  | O => OutOfFuel
  | S f =>
    let c := lookahead l in
    if is_identifier_continue c then
      if (len <? sizeof_word - 1)%nat then
        word' ← buf_write word len
                  (to_char (if is_ascii_letter c then tolower (to_uchar c) else c));
        scan_word_loop f (advance false l) word' (S len) too_long
      else scan_word_loop f (advance false l) word len true
    else Ret (word, len, too_long, l)
  end.

Definition scan_word_token (fuel : nat) (l : L) (valid_symbols : symbols)
    : res (WordScanResult * L) :=
  let escaped := lookahead l =? c! "&" in
  let l := if escaped then advance false l else l in
  if negb (is_identifier_start (lookahead l)) then
    Ret (WORD_NOT_APPLICABLE, l)
  else
    '(word, len, too_long, l) ←
      scan_word_loop fuel l (replicate sizeof_word 0) 0 false;
    let l := mark_end l in
    let fallback :=
      if valid_symbols IDENTIFIER then Ret (WORD_EMITTED, emit IDENTIFIER l)
      else Ret (WORD_NO_TOKEN, l) in
    if negb escaped && negb too_long then
      match List.find (λ candidate, text_match (codes (text candidate)) word len
                                    && valid_symbols (token candidate))
              CONTEXTUAL_WORDS with
      | Some candidate => Ret (WORD_EMITTED, emit (token candidate) l)
      | None =>
        match find_dcc_reserved_word word len with
        | Some reserved =>
          if valid_symbols (rtoken reserved) then
            Ret (WORD_EMITTED, emit (rtoken reserved) l)
          else Ret (WORD_NO_TOKEN, l)
        | None => fallback
        end
      end
    else fallback.
End code.

(** ** Specification *)

Definition contextual_token (w : list Z) : option TokenType :=
  token <$> List.find (λ x, bool_decide (codes (text x) = w)) CONTEXTUAL_WORDS.

Definition reserved_token (w : list Z) : option TokenType :=
  rtoken <$> List.find (λ x, bool_decide (codes (rtext x) = w)) DCC_RESERVED_WORDS.

(** The token of the lower-cased word [w], if any. *)
Definition classify_word (valid : symbols) (escaped : bool) (w : list Z)
    : option TokenType :=
  let identifier := if valid IDENTIFIER then Some IDENTIFIER else None in
  if escaped || (31 <? length w)%nat then identifier
  else
    match contextual_token w, reserved_token w with
    | Some t, _ => if valid t then Some t else identifier
    | None, Some t => if valid t then Some t else None
    | None, None => identifier
    end.

(** The word at the head of the input, lower-cased. *)
Definition word_of (cs : list Z) : list Z :=
  tolower <$> take (span_len is_identifier_continue cs) cs.

(** What [scan_word_token] does to the lexer. *)
Definition scan_word_spec `{TSLexer L} (valid : symbols) (cs : list Z) (l : L)
    : WordScanResult * L :=
  let escaped := peek cs =? c! "&" in
  let skip := if escaped then 1%nat else 0%nat in
  let cs' := drop skip cs in
  if is_identifier_start (peek cs') then
    let l' := mark_end (advs (skip + span_len is_identifier_continue cs') l) in
    match classify_word valid escaped (word_of cs') with
    | Some t => (WORD_EMITTED, emit t l')
    | None => (WORD_NO_TOKEN, l')
    end
  else (WORD_NOT_APPLICABLE, advs skip l).

(** ** The tables as partial functions *)

Lemma find_text_unique {A} (key : A → list Z) (xs : list A) (x : A) :
  NoDup (key <$> xs) → x ∈ xs →
  List.find (λ y, bool_decide (key y = key x)) xs = Some x.
Proof.
  intros Hnd Hx. induction Hx as [xs|x y xs Hx IH]; simpl.
  - by rewrite bool_decide_true.
  - apply NoDup_cons in Hnd as [Hy Hnd].
    rewrite bool_decide_false; [by apply IH|].
    intros Heq. apply Hy. rewrite Heq. by apply list_elem_of_fmap_2.
Qed.

Lemma contextual_texts_nodup : NoDup ((λ x, codes (text x)) <$> CONTEXTUAL_WORDS).
Proof. apply (bool_decide_unpack _). by vm_compute. Qed.

Lemma reserved_texts_nodup : NoDup ((λ x, codes (rtext x)) <$> DCC_RESERVED_WORDS).
Proof. apply (bool_decide_unpack _). by vm_compute. Qed.

Lemma contextual_token_elem x :
  x ∈ CONTEXTUAL_WORDS → contextual_token (codes (text x)) = Some (token x).
Proof.
  intros Hx. unfold contextual_token.
  by rewrite (find_text_unique (λ x, codes (text x)) _ _ contextual_texts_nodup Hx).
Qed.

Lemma reserved_token_elem x :
  x ∈ DCC_RESERVED_WORDS → reserved_token (codes (rtext x)) = Some (rtoken x).
Proof.
  intros Hx. unfold reserved_token.
  by rewrite (find_text_unique (λ x, codes (rtext x)) _ _ reserved_texts_nodup Hx).
Qed.

Lemma contextual_token_inv w t :
  contextual_token w = Some t →
  ∃ x, x ∈ CONTEXTUAL_WORDS ∧ codes (text x) = w ∧ token x = t.
Proof.
  unfold contextual_token. destruct (List.find _ _) as [x|] eqn:E; [|done].
  intros [= <-]. apply find_some in E as [Hx%list_elem_of_In Hw].
  exists x. apply bool_decide_eq_true in Hw. done.
Qed.

Lemma reserved_token_inv w t :
  reserved_token w = Some t →
  ∃ x, x ∈ DCC_RESERVED_WORDS ∧ codes (rtext x) = w ∧ rtoken x = t.
Proof.
  unfold reserved_token. destruct (List.find _ _) as [x|] eqn:E; [|done].
  intros [= <-]. apply find_some in E as [Hx%list_elem_of_In Hw].
  exists x. apply bool_decide_eq_true in Hw. done.
Qed.

(** No word is both contextual and reserved. *)
Lemma contextual_not_reserved w t :
  contextual_token w = Some t → reserved_token w = None.
Proof.
  intros (x & Hx & <- & _)%contextual_token_inv.
  assert (Forall (λ x, reserved_token (codes (text x)) = None) CONTEXTUAL_WORDS)
    as Hall; [|by apply (proj1 (Forall_forall _ _) Hall)].
  apply (bool_decide_unpack _). by vm_compute.
Qed.

(** The word tables hold none of the first four tokens. *)
Lemma table_token_index w t :
  contextual_token w = Some t ∨ reserved_token w = Some t → (4 ≤ token_index t)%nat.
Proof.
  assert (Forall (λ x, 4 ≤ token_index (token x))%nat CONTEXTUAL_WORDS) as Hc
    by (apply (bool_decide_unpack _); by vm_compute).
  assert (Forall (λ x, 4 ≤ token_index (rtoken x))%nat DCC_RESERVED_WORDS) as Hr
    by (apply (bool_decide_unpack _); by vm_compute).
  intros [(x & Hx & _ & <-)%contextual_token_inv|(x & Hx & _ & <-)%reserved_token_inv].
  - by apply (proj1 (Forall_forall _ _) Hc).
  - by apply (proj1 (Forall_forall _ _) Hr).
Qed.

(** A word is an identifier or one of the table tokens. *)
Lemma classify_word_kind valid escaped w t :
  classify_word valid escaped w = Some t → t = IDENTIFIER ∨ (4 ≤ token_index t)%nat.
Proof.
  unfold classify_word. pose proof (table_token_index w) as Ht.
  intros Hc. repeat case_match; simplify_eq; eauto.
Qed.

(** ** Refinement *)

Section refinement.
Context `{TSLexerOk L}.

(** The buffer holds the first 31 characters of the word, [too_long] says
    whether there are more, and the lexer stops after the last of them. *)
Lemma scan_word_loop_spec fuel l ws too_long :
  (length ws ≤ 31)%nat → (length (rest l) < fuel)%nat →
  scan_word_loop fuel l (padded 32 ws) (length ws) too_long
  = let n := span_len is_identifier_continue (rest l) in
    let kept := take (31 - length ws) (word_of (rest l)) in
    Ret (padded 32 (ws ++ kept), length (ws ++ kept),
         too_long || (31 - length ws <? n)%nat, advs n l).
Proof.
  revert l ws too_long.
  induction fuel as [|f IH]; intros l ws too_long Hws Hf; [lia|].
  simpl scan_word_loop. rewrite lookahead_rest. unfold word_of.
  destruct (rest l) as [|c cs] eqn:E; simpl peek.
  - simpl. by rewrite take_nil, app_nil_r, orb_false_r.
  - destruct (is_identifier_continue c) eqn:Hc.
    2:{ simpl. rewrite Hc. simpl. by rewrite take_nil, app_nil_r, orb_false_r. }
    cbn zeta. simpl span_len. rewrite Hc.
    assert (rest (advance false l) = cs) as Hr by (by rewrite rest_advance, E).
    assert (length cs < f)%nat by (simpl in Hf; lia).
    change (sizeof_word - 1)%nat with 31%nat in *.
    destruct (Nat.ltb_spec (length ws) 31) as [Hlt|Hge].
    + rewrite stored_char, buf_write_padded, res_bind_ret by (done || lia).
      replace (S (length ws)) with (length (ws ++ [tolower c]))
        by (rewrite length_app; simpl; lia).
      rewrite IH, Hr; [|rewrite length_app; simpl; lia|by rewrite Hr].
      unfold word_of. cbn zeta. rewrite length_app. simpl length.
      replace (31 - length ws)%nat with (S (31 - (length ws + 1)))%nat by lia.
      simpl. rewrite <- (assoc_L (++)). simpl. done.
    + rewrite IH, Hr; [|lia|by rewrite Hr].
      unfold word_of. cbn zeta.
      replace (31 - length ws)%nat with 0%nat by lia. simpl.
      by rewrite orb_true_r.
Qed.

Lemma text_match_padded t w :
  text_match t (padded 32 w) (length w) = bool_decide (t = w).
Proof. apply memcmp_padded. Qed.

Lemma find_text_match {A} (key : A → list Z) (q : A → bool) w xs :
  List.find (λ x, text_match (key x) (padded 32 w) (length w) && q x) xs
  = List.find (λ x, bool_decide (key x = w) && q x) xs.
Proof.
  induction xs as [|x xs IH]; simpl; [done|].
  by rewrite text_match_padded, IH.
Qed.

Lemma find_and {A} (p q : A → bool) (xs : list A) :
  (∀ x y, x ∈ xs → y ∈ xs → p x = true → p y = true → q x = q y) →
  List.find (λ x, p x && q x) xs
  = match List.find p xs with
    | Some x => if q x then Some x else None
    | None => None
    end.
Proof.
  induction xs as [|x xs IH]; intros Hu; simpl; [done|].
  destruct (p x) eqn:Hp; simpl.
  - destruct (q x) eqn:Hq; [done|].
    rewrite IH by (intros; apply Hu; [by right|by right|done|done]).
    destruct (List.find p xs) as [y|] eqn:Hf; [|done].
    apply find_some in Hf as [Hy%list_elem_of_In Hpy].
    rewrite <- (Hu x y), Hq by (done || (by left) || (by right)). done.
  - apply IH. intros; apply Hu; [by right|by right|done|done].
Qed.

(** The two table lookups of the code, on a completely read word, are the
    specification's. *)
Lemma contextual_lookup (valid : symbols) w :
  List.find (λ x, text_match (codes (text x)) (padded 32 w) (length w)
                  && valid (token x)) CONTEXTUAL_WORDS
  = match List.find (λ x, bool_decide (codes (text x) = w)) CONTEXTUAL_WORDS with
    | Some x => if valid (token x) then Some x else None
    | None => None
    end.
Proof.
  rewrite (find_text_match (λ x, codes (text x)) (λ x, valid (token x))).
  rewrite (find_and (λ x, bool_decide (codes (text x) = w)) (λ x, valid (token x)));
    [done|].
  intros x y Hx Hy Hpx%bool_decide_eq_true Hpy%bool_decide_eq_true.
  apply contextual_token_elem in Hx, Hy. congruence.
Qed.

Lemma reserved_lookup w :
  find_dcc_reserved_word (padded 32 w) (length w)
  = List.find (λ x, bool_decide (codes (rtext x) = w)) DCC_RESERVED_WORDS.
Proof.
  unfold find_dcc_reserved_word.
  induction DCC_RESERVED_WORDS as [|x xs IH]; simpl; [done|].
  by rewrite text_match_padded, IH.
Qed.

Lemma word_of_length cs :
  length (word_of cs) = span_len is_identifier_continue cs.
Proof.
  unfold word_of. rewrite length_fmap, length_take.
  pose proof (span_len_le is_identifier_continue cs). lia.
Qed.

Theorem scan_word_token_spec fuel l valid :
  (length (rest l) < fuel)%nat →
  scan_word_token fuel l valid = Ret (scan_word_spec valid (rest l) l).
Proof.
  intros Hf. unfold scan_word_token, scan_word_spec. cbn zeta.
  rewrite (lookahead_rest l).
  set (escaped := peek (rest l) =? _).
  set (skip := if escaped then 1%nat else 0%nat).
  replace (if escaped then advance false l else l) with (advs skip l)
    by (unfold skip; by destruct escaped).
  set (l1 := advs skip l). set (cs' := drop skip (rest l)).
  assert (rest l1 = cs') as Hr by (apply rest_advs).
  rewrite lookahead_rest, Hr.
  destruct (is_identifier_start (peek cs')); simpl negb; cbn iota; [|done].
  assert (length (rest l1) < fuel)%nat
    by (rewrite Hr; unfold cs'; rewrite length_drop; lia).
  pose proof (scan_word_loop_spec fuel l1 [] false) as Hloop.
  change (padded 32 []) with (replicate sizeof_word 0) in Hloop.
  simpl length in Hloop. rewrite Hloop by lia. clear Hloop.
  rewrite res_bind_ret. rewrite Hr, !app_nil_l, orb_false_l, Nat.sub_0_r.
  unfold l1. rewrite <- advs_add.
  set (l2 := mark_end _). set (w := word_of cs').
  unfold classify_word. rewrite <- (word_of_length cs'). fold w.
  rewrite <- negb_orb.
  destruct (escaped || (31 <? length w)%nat) eqn:Hlong; simpl negb; cbn iota.
  { by destruct (valid IDENTIFIER). }
  apply orb_false_iff in Hlong as [_ Hlong%Nat.ltb_ge].
  rewrite (take_ge w 31) by done.
  rewrite contextual_lookup, reserved_lookup.
  pose proof (contextual_not_reserved w) as Hdisj.
  unfold contextual_token, reserved_token in *.
  destruct (List.find _ CONTEXTUAL_WORDS) as [x|];
    destruct (List.find _ DCC_RESERVED_WORDS) as [y|];
    cbn [fmap option_fmap option_map] in *.
  - by specialize (Hdisj _ eq_refl).
  - destruct (valid (token x)), (valid IDENTIFIER); done.
  - destruct (valid (rtoken y)); done.
  - destruct (valid IDENTIFIER); done.
Qed.
End refinement.
