(* ===== verification/Multiline.v ===== *)
(** * Delphi 12 multiline strings: [scan_multiline_string] of [scanner.c]

    The reference definition [multiline_string] says which texts are such
    strings: an odd run of at least three quotes ending its line, closed by
    the first later line that starts, after blanks, with a run of exactly as
    many quotes.  [scan_multiline_string_spec] is the equivalence of the
    character loop with it.  The quote counts are [unsigned]; the hypothesis
    that the input has fewer than 2^32 characters (tree-sitter's offsets are
    [uint32_t]) rules out their wrap-around. *)

From S2P Require Import Prelude.
From S2P Require Import Lexer.
From S2P Require Import Chars.
From S2P Require Import Tokens.
From S2P Require Import Words.

Definition is_quote (c : Z) : bool := c =? c! "'".

Section code.
Context `{TSLexer L}.

Fixpoint count_quotes_loop (fuel : nat) (l : L) (count : Z) : res (Z * L) :=
  match fuel with
  | O => OutOfFuel
  | S f =>
    if lookahead l =? c! "'" then
      count_quotes_loop f (advance false l) (wrap32 (count + 1))
    else Ret (count, l)
  end.

Definition count_quotes (fuel : nat) (l : L) : res (Z * L) :=
  count_quotes_loop fuel l 0.

(** The inner loop [while (lookahead != '\n')]: [false] when the function
    returns because of the end of the input. *)
Fixpoint to_line_break (fuel : nat) (l : L) : res (bool * L) :=
  match fuel with
  | O => OutOfFuel
  | S f =>
    if negb (lookahead l =? LF) then
      if eof l then Ret (false, l) else to_line_break f (advance false l)
    else Ret (true, l)
  end.

(** The [for (;;)] loop. *)
Fixpoint multiline_loop (fuel : nat) (delimiter : Z) (l : L) : res (bool * L) :=
  match fuel with
  | O => OutOfFuel
  | S f =>
    '(found, l) ← to_line_break fuel l;
    if negb found then Ret (false, l)
    else
      let l := advance false l in
      l ← skip_while is_blank fuel l;
      '(n, l) ← count_quotes fuel l;
      if n =? delimiter then
        Ret (true, emit LITERAL_STRING_MULTILINE (mark_end l))
      else multiline_loop f delimiter l
  end.

Definition scan_multiline_string (fuel : nat) (l : L) : res (bool * L) :=
  '(delimiter, l) ← count_quotes fuel l;
  if (delimiter <? 3) || (delimiter mod 2 =? 0) then Ret (false, l)
  else
    l ← skip_while is_blank fuel l;
    if negb (lookahead l =? CR) && negb (lookahead l =? LF) then Ret (false, l)
    else multiline_loop fuel delimiter l.
End code.

(** ** Reference definition *)

(** The suffixes of [cs] that start a line after the first. *)
Fixpoint line_starts (cs : list Z) : list (list Z) :=
  match cs with
  | [] => []
  | c :: cs' => if c =? LF then cs' :: line_starts cs' else line_starts cs'
  end.

(** The quotes that open [line], after its indentation. *)
Definition indentation (line : list Z) : nat := span_len is_blank line.

Definition leading_quotes (line : list Z) : nat :=
  span_len is_quote (drop (indentation line) line).

(** What follows the closing delimiter of [line]. *)
Definition after_delimiter (line : list Z) : list Z :=
  drop (indentation line + leading_quotes line) line.

(** The text after the multiline string that starts [cs], if there is one. *)
Definition multiline_string (cs : list Z) : option (list Z) :=
  let d := span_len is_quote cs in
  let body := drop (indentation (drop d cs)) (drop d cs) in
  if (3 <=? d)%nat && Nat.odd d && ((peek body =? CR) || (peek body =? LF)) then
    after_delimiter <$> List.find (λ s, leading_quotes s =? d)%nat (line_starts body)
  else None.

(** ** Equivalence *)

Lemma line_starts_drop p cs :
  p LF = false → line_starts (drop (span_len p cs) cs) = line_starts cs.
Proof.
  intros Hp. induction cs as [|c cs IH]; simpl; [done|].
  destruct (p c) eqn:Hc; simpl; [|done].
  destruct (Z.eqb_spec c LF); [congruence|done].
Qed.

Lemma line_starts_no_lf cs :
  span_len (λ c, negb (c =? LF)) cs = length cs → line_starts cs = [].
Proof.
  induction cs as [|c cs IH]; simpl; [done|].
  destruct (c =? LF); simpl; [done|]. intros [= Hs]. auto.
Qed.

Lemma line_starts_lf cs :
  let n := span_len (λ c, negb (c =? LF)) cs in
  (n < length cs)%nat →
  line_starts cs = drop (S n) cs :: line_starts (drop (S n) cs).
Proof.
  induction cs as [|c cs IH]; simpl; [lia|].
  destruct (c =? LF); simpl; [done|]. intros Hn. apply IH. lia.
Qed.

Lemma line_starts_after_delimiter line :
  line_starts (after_delimiter line) = line_starts line.
Proof.
  unfold after_delimiter, leading_quotes, indentation.
  by rewrite <- drop_drop, !line_starts_drop.
Qed.

Lemma line_starts_length s cs : s ∈ line_starts cs → (length s < length cs)%nat.
Proof.
  induction cs as [|c cs IH]; simpl; [by intros ?%not_elem_of_nil|].
  destruct (c =? LF); [intros [->|Hs]%elem_of_cons|intros Hs]; [lia| |];
    specialize (IH Hs); lia.
Qed.

Section equivalence.
Context `{TSLexerOk L}.

Lemma count_quotes_loop_spec fuel l count :
  (length (rest l) < fuel)%nat →
  0 ≤ count → count + Z.of_nat (length (rest l)) < 2 ^ 32 →
  count_quotes_loop fuel l count
  = let n := span_len is_quote (rest l) in Ret (count + Z.of_nat n, advs n l).
Proof.
  revert l count. induction fuel as [|f IH]; intros l count Hf Hc Hb; [lia|].
  simpl. rewrite lookahead_rest.
  destruct (rest l) as [|c cs] eqn:E; simpl; [by rewrite Z.add_0_r|].
  unfold is_quote at 1 3. destruct (c =? c! "'"); [|by rewrite Z.add_0_r].
  simpl in Hf, Hb.
  rewrite wrap32_small, IH by (rewrite ?rest_advance, ?E; simpl; lia).
  rewrite rest_advance, E. simpl. do 2 f_equal. lia.
Qed.

Lemma count_quotes_spec fuel l :
  (length (rest l) < fuel)%nat → Z.of_nat (length (rest l)) < 2 ^ 32 →
  count_quotes fuel l
  = let n := span_len is_quote (rest l) in Ret (Z.of_nat n, advs n l).
Proof. intros. unfold count_quotes. by rewrite count_quotes_loop_spec by lia. Qed.

Lemma to_line_break_spec fuel l :
  (length (rest l) < fuel)%nat →
  to_line_break fuel l
  = let n := span_len (λ c, negb (c =? LF)) (rest l) in
    Ret ((n <? length (rest l))%nat, advs n l).
Proof.
  revert l. induction fuel as [|f IH]; intros l Hf; [lia|].
  simpl. rewrite lookahead_rest, eof_rest.
  destruct (rest l) as [|c cs] eqn:E; simpl; [done|].
  destruct (c =? LF); simpl; [done|]. simpl in Hf.
  rewrite IH; rewrite rest_advance, E; simpl; [done|lia].
Qed.

(** One turn of the [for] loop tests one line start. *)
Lemma multiline_loop_spec fuel d l :
  (length (rest l) < fuel)%nat → Z.of_nat (length (rest l)) < 2 ^ 32 →
  match List.find (λ s, leading_quotes s =? d)%nat (line_starts (rest l)) with
  | Some s =>
    ∃ k, multiline_loop fuel (Z.of_nat d) l
         = Ret (true, emit LITERAL_STRING_MULTILINE (mark_end (advs k l)))
       ∧ drop k (rest l) = after_delimiter s
  | None => ∃ k, multiline_loop fuel (Z.of_nat d) l = Ret (false, advs k l)
  end.
Proof.
  revert l. induction fuel as [|f IH]; intros l Hf Hb; [lia|].
  cbn [multiline_loop]. rewrite to_line_break_spec by done.
  cbn zeta. rewrite res_bind_ret.
  set (n := span_len _ (rest l)).
  destruct (Nat.ltb_spec n (length (rest l))) as [Hn|Hn]; simpl negb; cbn iota.
  - rewrite (line_starts_lf (rest l)) by done. fold n. set (s := drop (S n) (rest l)).
    change (advance false (advs n l)) with (advs 1 (advs n l)).
    rewrite <- advs_add, Nat.add_1_r.
    assert (rest (advs (S n) l) = s) as Hs by (apply rest_advs).
    assert (length s < length (rest l))%nat
      by (unfold s; rewrite length_drop; lia).
    rewrite skip_while_spec by (done || rewrite Hs; lia).
    rewrite res_bind_ret, Hs, <- advs_add. fold (indentation s).
    assert (rest (advs (S n + indentation s) l) = drop (indentation s) s) as Hi
      by (unfold s; by rewrite rest_advs, drop_drop).
    rewrite count_quotes_spec by (rewrite Hi, length_drop; lia).
    cbn zeta. rewrite res_bind_ret, Hi, <- advs_add. fold (leading_quotes s).
    assert (drop (S n + indentation s + leading_quotes s) (rest l)
            = after_delimiter s) as Hk
      by (unfold after_delimiter, s; rewrite drop_drop; f_equal; lia).
    simpl List.find.
    destruct (Nat.eqb_spec (leading_quotes s) d) as [Hd|Hd].
    + rewrite Hd, Z.eqb_refl. eexists. split; [done|]. by rewrite <- Hd.
    + replace (Z.of_nat (leading_quotes s) =? Z.of_nat d) with false by lia.
      set (k := (S n + indentation s + leading_quotes s)%nat) in *.
      specialize (IH (advs k l)). rewrite rest_advs, Hk in IH.
      rewrite line_starts_after_delimiter in IH.
      assert (length (after_delimiter s) ≤ length s)%nat
        by (unfold after_delimiter; rewrite length_drop; lia).
      specialize (IH ltac:(lia) ltac:(lia)).
      destruct (List.find _ (line_starts s)) as [s'|].
      * destruct IH as (k' & -> & Hk'). exists (k + k')%nat.
        rewrite advs_add. split; [done|]. by rewrite <- Hk', <- Hk, drop_drop.
      * destruct IH as (k' & ->). exists (k + k')%nat. by rewrite advs_add.
  - rewrite line_starts_no_lf; [simpl; eauto|].
    pose proof (span_len_le (λ c, negb (c =? LF)) (rest l)). fold n in H1 |- *. lia.
Qed.

Theorem scan_multiline_string_spec fuel l :
  (length (rest l) < fuel)%nat → Z.of_nat (length (rest l)) < 2 ^ 32 →
  match multiline_string (rest l) with
  | Some tl =>
    ∃ k, scan_multiline_string fuel l
         = Ret (true, emit LITERAL_STRING_MULTILINE (mark_end (advs k l)))
       ∧ drop k (rest l) = tl
  | None => ∃ k, scan_multiline_string fuel l = Ret (false, advs k l)
  end.
Proof.
  intros Hf Hb. unfold scan_multiline_string, multiline_string.
  rewrite count_quotes_spec by done. cbn zeta. rewrite res_bind_ret.
  set (d := span_len is_quote (rest l)).
  assert (Z.of_nat d mod 2 = if Nat.odd d then 1 else 0) as ->.
  { change 2 with (Z.of_nat 2). rewrite <- Nat2Z.inj_mod, <- Nat.bit0_mod.
    rewrite Nat.bit0_odd. by destruct (Nat.odd d). }
  destruct (Nat.leb_spec 3 d) as [H3|H3]; cycle 1.
  { replace (Z.of_nat d <? 3) with true by lia. simpl. eauto. }
  replace (Z.of_nat d <? 3) with false by lia.
  destruct (Nat.odd d); simpl andb; simpl orb; cbn iota; [|eauto].
  assert (rest (advs d l) = drop d (rest l)) as Hr by apply rest_advs.
  rewrite skip_while_spec by (done || rewrite Hr, length_drop; lia).
  rewrite res_bind_ret, Hr, <- advs_add. fold (indentation (drop d (rest l))).
  set (body := drop (indentation _) _).
  set (k := (d + indentation (drop d (rest l)))%nat).
  assert (rest (advs k l) = body) as Hbody
    by (unfold k, body; by rewrite rest_advs, drop_drop).
  rewrite lookahead_rest, Hbody, <- negb_orb.
  destruct ((peek body =? CR) || (peek body =? LF)); simpl; [|eauto].
  pose proof (multiline_loop_spec fuel d (advs k l)) as Hl. rewrite Hbody in Hl.
  assert (length body ≤ length (rest l))%nat
    by (unfold body; rewrite !length_drop; lia).
  specialize (Hl ltac:(lia) ltac:(lia)).
  destruct (List.find _ (line_starts body)) as [s|]; simpl.
  - destruct Hl as (k' & -> & Hk'). exists (k + k')%nat.
    rewrite advs_add. split; [done|].
    by rewrite <- Hk', <- Hbody, rest_advs, drop_drop.
  - destruct Hl as (k' & ->). exists (k + k')%nat. by rewrite advs_add.
Qed.
End equivalence.
