(* ===== verification/Fragment.v ===== *)
(** * Conditional-compilation fragments of [scanner.c]

    A fragment is a span [{$if...} body {$endif}], with nested pairs, that
    the scanner turns into one opaque token.  This file models the code from
    the test of the opening brace to the end of the entry point: the closing
    search [skip_to_close], the body of the depth loop ([fragment_step]), the
    loop itself, the token selection and the extension pass. *)

From S2P Require Import Prelude.
From S2P Require Import Lexer.
From S2P Require Import Chars.
From S2P Require Import Tokens.
From S2P Require Import Words.

Definition is_newline (c : Z) : bool := (c =? LF) || (c =? CR).

(** [is_routine_directive(word, len)]. *)
Definition is_routine_directive (word : list Z) (len : nat) : bool :=
  existsb (λ d, text_match (codes d) word len) ROUTINE_DIRECTIVES.

(** [len == 2 && memcmp(buf, "if", 2) == 0 || ...]. *)
Definition is_if_keyword (buf : list Z) (len : nat) : bool :=
  (len =? 2)%nat && memcmp_eq buf (codes "if") 2
  || (len =? 5)%nat && memcmp_eq buf (codes "ifdef") 5
  || (len =? 6)%nat && memcmp_eq buf (codes "ifndef") 6.

Definition is_endif_keyword (buf : list Z) (len : nat) : bool :=
  (len =? 5)%nat && memcmp_eq buf (codes "endif") 5
  || (len =? 5)%nat && memcmp_eq buf (codes "ifend") 5.

(** The local variables of the depth loop. *)
Record frag_state := MkFrag {
  depth : Z;
  saw_newline : bool;
  saw_top_level_semi : bool;
  saw_directive : bool;
  directives_only : bool;
}.

Definition set_depth (d : Z) (st : frag_state) : frag_state :=
  MkFrag d (saw_newline st) (saw_top_level_semi st) (saw_directive st)
    (directives_only st).
Definition set_newline (b : bool) (st : frag_state) : frag_state :=
  MkFrag (depth st) b (saw_top_level_semi st) (saw_directive st)
    (directives_only st).
Definition set_semi (st : frag_state) : frag_state :=
  MkFrag (depth st) (saw_newline st) true (saw_directive st) (directives_only st).
Definition set_directive (st : frag_state) : frag_state :=
  MkFrag (depth st) (saw_newline st) (saw_top_level_semi st) true
    (directives_only st).
Definition set_not_only (st : frag_state) : frag_state :=
  MkFrag (depth st) (saw_newline st) (saw_top_level_semi st) (saw_directive st)
    false.

(** How an iteration of the depth loop ends. *)
Inductive step_result (L : Type) : Type :=
  | Continue (st : frag_state) (l : L)
  | ReturnFalse (l : L).
Arguments Continue {L} st l.
Arguments ReturnFalse {L} l.

(** The loop conditions inside strings and after [//]. *)
Definition in_string (c : Z) : bool :=
  negb (c =? c! "'") && negb (c =? 0) && negb (c =? LF) && negb (c =? CR).
Definition in_line_comment (c : Z) : bool :=
  negb (c =? 0) && negb (c =? LF) && negb (c =? CR).

(** The characters the extension pass absorbs. *)
Definition in_chain (c : Z) : bool :=
  negb (c =? 0) && negb (is_space_or_newline c)
  && (is_ascii_letter c || (c! "0" <=? c) && (c <=? c! "9") || (c =? c! "_")
      || (c =? c! ".")).

Section code.
Context `{TSLexer L}.

(** The out-parameter [saw_newline] is [None] for a null pointer. *)
Fixpoint skip_to_close (fuel : nat) (l : L) (paren_star : bool)
    (saw : option bool) : res (bool * option bool * L) :=
  match fuel with
  | O => OutOfFuel
  | S f =>
    if lookahead l =? 0 then Ret (false, saw, l)
    else
      let c := lookahead l in
      let l := advance false l in
      let saw := (λ b, if is_newline c then true else b) <$> saw in
      if (if paren_star then (c =? c! "*") && (lookahead l =? c! ")")
          else c =? c! "}") then
        Ret (true, saw, if paren_star then advance false l else l)
      else skip_to_close f l paren_star saw
  end.

(** The branch for a character that opens neither a directive nor a
    comment. *)
Definition fragment_text (fuel : nat) (st : frag_state) (l : L)
    : res (step_result L) :=
  if (depth st =? 1) && is_ascii_letter (lookahead l) then
    '(word, word_len, l) ← read_ascii_keyword l (replicate 16 0) (16 - 1);
    if is_ascii_letter (lookahead l) || negb (is_routine_directive word word_len)
    then Ret (Continue (set_not_only st) l)
    else Ret (Continue (set_directive st) l)
  else
    let st :=
      if negb (lookahead l =? c! ";") && negb (is_space_or_newline (lookahead l))
      then set_not_only st else st in
    if lookahead l =? c! "'" then
      l ← skip_while in_string fuel (advance false l);
      Ret (Continue st (if lookahead l =? c! "'" then advance false l else l))
    else if lookahead l =? c! "/" then
      let l := advance false l in
      l ← if lookahead l =? c! "/" then skip_while in_line_comment fuel l else Ret l;
      Ret (Continue st l)
    else
      let st :=
        if (lookahead l =? LF) || (lookahead l =? CR) then set_newline true st
        else if (lookahead l =? c! ";") && (depth st =? 1) then set_semi st
        else st in
      Ret (Continue st (advance false l)).

(** The branch for a brace or a parenthesis. *)
Definition fragment_bracket (fuel : nat) (st : frag_state) (l : L)
    (inner_paren_star : bool) : res (step_result L) :=
  let l := advance false l in
  if inner_paren_star && negb (lookahead l =? c! "*") then
    Ret (Continue (set_not_only st) l)
  else
    let l := if inner_paren_star then advance false l else l in
    if negb (lookahead l =? c! "$") then
      let st := set_not_only st in
      '(closed, saw, l) ←
        skip_to_close fuel l inner_paren_star (Some (saw_newline st));
      let st := set_newline (default (saw_newline st) saw) st in
      if negb closed then Ret (ReturnFalse l) else Ret (Continue st l)
    else
      let l := advance false l in
      '(inner, inner_len, l) ← read_ascii_keyword l (replicate 8 0) (8 - 1);
      let st :=
        if is_if_keyword inner inner_len then
          set_not_only (set_depth (wrap32 (depth st + 1)) st)
        else if is_endif_keyword inner inner_len then
          set_depth (wrap32 (depth st - 1)) st
        else st in
      '(closed, _, l) ← skip_to_close fuel l inner_paren_star None;
      if negb closed then Ret (ReturnFalse l) else Ret (Continue st l).

(** One iteration of [while (depth > 0)]. *)
Definition fragment_step (fuel : nat) (st : frag_state) (l : L)
    : res (step_result L) :=
  if lookahead l =? 0 then Ret (ReturnFalse l)
  else
    let inner_paren_star := lookahead l =? c! "(" in
    if negb (lookahead l =? c! "{") && negb inner_paren_star then
      fragment_text fuel st l
    else fragment_bracket fuel st l inner_paren_star.

(** The loop: [None] when the function returns [false] inside it. *)
Fixpoint fragment_loop (fuel : nat) (st : frag_state) (l : L)
    : res (option frag_state * L) :=
  match fuel with
  | O => OutOfFuel
  | S f =>
    if 0 <? depth st then
      r ← fragment_step fuel st l;
      match r with
      | Continue st l => fragment_loop f st l
      | ReturnFalse l => Ret (None, l)
      end
    else Ret (Some st, l)
  end.

Definition initial_frag : frag_state := MkFrag 1 false false false true.

(** Token selection and the extension pass. *)
Definition select_fragment (fuel : nat) (st : frag_state) (l : L)
    (valid_symbols : symbols) : res (bool * L) :=
  if saw_newline st || saw_directive st && directives_only st then Ret (false, l)
  else if saw_top_level_semi st && valid_symbols PP_FRAGMENT_STMT then
    Ret (true, emit PP_FRAGMENT_STMT (mark_end l))
  else if negb (valid_symbols PP_FRAGMENT_EXPR) then Ret (false, l)
  else
    l ← skip_while in_chain fuel l;
    Ret (true, emit PP_FRAGMENT_EXPR (mark_end l)).

(** The rest of the entry point, from the test of the opening brace. *)
Definition scan_fragment (fuel : nat) (l : L) (valid_symbols : symbols)
    : res (bool * L) :=
  let paren_star := lookahead l =? c! "(" in
  if negb (lookahead l =? c! "{") && negb paren_star then Ret (false, l)
  else
    let l := advance false l in
    if paren_star && negb (lookahead l =? c! "*") then Ret (false, l)
    else
      let l := if paren_star then advance false l else l in
      if negb (lookahead l =? c! "$") then Ret (false, l)
      else
        let l := advance false l in
        '(keyword, keyword_len, l) ← read_ascii_keyword l (replicate 8 0) (8 - 1);
        if negb (is_if_keyword keyword keyword_len) then Ret (false, l)
        else
          '(closed, _, l) ← skip_to_close fuel l paren_star None;
          if negb closed then Ret (false, l)
          else
            '(r, l) ← fragment_loop fuel initial_frag l;
            match r with
            | None => Ret (false, l)
            | Some st => select_fragment fuel st l valid_symbols
            end.
End code.
