(* ===== verification/FragmentSpec.v ===== *)
(** * Reference semantics of fragments and the refinement of the scanner

    [next_item] cuts the head of a fragment body into one lexical item
    (word, string, comment, directive, ...), [apply_item] is the effect of an
    item on the loop's variables, and [runs] is the step relation they
    induce.  The theorems show that the character-level loop of
    [Fragment.v], with its buffers and its lexer, computes exactly this. *)

From S2P Require Import Prelude.
From S2P Require Import Lexer.
From S2P Require Import Chars.
From S2P Require Import Tokens.
From S2P Require Import Words.
From S2P Require Import Fragment.

(** ** Items *)

(** How many characters up to and including the closing brace; [None] when
    the input ends (or holds a NUL) before it. *)
Fixpoint close_len (paren_star : bool) (cs : list Z) : option nat :=
  match cs with
  | [] => None
  | c :: cs' =>
    if c =? 0 then None
    else if (if paren_star then (c =? c! "*") && (peek cs' =? c! ")")
             else c =? c! "}") then
      Some (if paren_star then 2%nat else 1%nat)
    else S <$> close_len paren_star cs'
  end.

Inductive item : Set :=
  | IWord (w : list Z) (more : bool)
  | IString
  | ISlash
  | IChar (c : Z)
  | IParen
  | IComment (t : list Z)
  | IDirective (kw : list Z).

(** The next item and its length.  [d1] says whether the loop is at depth 1,
    where letters are read as words. *)
Definition next_item (d1 : bool) (cs : list Z) : option (item * nat) :=
  let c := peek cs in
  if (c =? c! "{") || (c =? c! "(") then
    let ps := c =? c! "(" in
    if ps && negb (peek (drop 1 cs) =? c! "*") then Some (IParen, 1%nat)
    else
      let k := if ps then 2%nat else 1%nat in
      if peek (drop k cs) =? c! "$" then
        let kw := keyword_of 7 (drop (k + 1) cs) in
        let k' := (k + 1 + length kw)%nat in
        (λ n, (IDirective kw, (k' + n)%nat)) <$> close_len ps (drop k' cs)
      else
        (λ n, (IComment (take n (drop k cs)), (k + n)%nat))
          <$> close_len ps (drop k cs)
  else if d1 && is_ascii_letter c then
    let w := keyword_of 15 cs in
    Some (IWord w (is_ascii_letter (peek (drop (length w) cs))), length w)
  else if c =? c! "'" then
    let n := span_len in_string (drop 1 cs) in
    let close := if peek (drop (1 + n) cs) =? c! "'" then 1%nat else 0%nat in
    Some (IString, (1 + n + close)%nat)
  else if c =? c! "/" then
    Some (ISlash, if peek (drop 1 cs) =? c! "/" then
                    (1 + span_len in_line_comment (drop 1 cs))%nat else 1%nat)
  else Some (IChar c, 1%nat).

Definition opens (kw : list Z) : bool :=
  bool_decide (kw ∈ [codes "if"; codes "ifdef"; codes "ifndef"]).

Definition closes (kw : list Z) : bool :=
  bool_decide (kw ∈ [codes "endif"; codes "ifend"]).

Definition routine_word (w : list Z) : bool :=
  bool_decide (w ∈ codes <$> ROUTINE_DIRECTIVES).

Definition apply_item (it : item) (st : frag_state) : frag_state :=
  match it with
  | IWord w more =>
    if more || negb (routine_word w) then set_not_only st else set_directive st
  | IString | ISlash | IParen => set_not_only st
  | IChar c =>
    let st := if negb (c =? c! ";") && negb (is_space_or_newline c)
              then set_not_only st else st in
    if is_newline c then set_newline true st
    else if (c =? c! ";") && (depth st =? 1) then set_semi st else st
  | IComment t =>
    let st := set_not_only st in
    set_newline (saw_newline st || existsb is_newline t) st
  | IDirective kw =>
    if opens kw then set_not_only (set_depth (wrap32 (depth st + 1)) st)
    else if closes kw then set_depth (wrap32 (depth st - 1)) st
    else st
  end.

(** The depth loop from state [st] on the input [cs] consumes the items [its]
    and ends at depth zero in [st'] with [cs'] left. *)
Inductive runs : frag_state → list Z → list item → frag_state → list Z → Prop :=
  | runs_done st cs : ¬ 0 < depth st → runs st cs [] st cs
  | runs_step st cs it n its st' cs' :
    0 < depth st → peek cs ≠ 0 →
    next_item (depth st =? 1) cs = Some (it, n) →
    runs (apply_item it st) (drop n cs) its st' cs' →
    runs st cs (it :: its) st' cs'.

(** ** The keyword tests *)

Lemma keyword_text n w (t : string) (k : nat) :
  length (codes t) = k →
  (length w =? k)%nat && memcmp_eq (padded n w) (codes t) k
  = bool_decide (codes t = w).
Proof.
  intros <-. rewrite <- (memcmp_padded n), (Nat.eqb_sym (length w)).
  destruct (Nat.eqb_spec (length (codes t)) (length w)) as [->|]; simpl; [|done].
  unfold memcmp_eq. by apply bool_decide_ext.
Qed.

Lemma is_if_keyword_padded n w :
  is_if_keyword (padded n w) (length w) = opens w.
Proof.
  unfold is_if_keyword, opens. rewrite !keyword_text by done.
  rewrite <- !bool_decide_or. apply bool_decide_ext.
  rewrite !elem_of_cons, elem_of_nil. naive_solver.
Qed.

Lemma is_endif_keyword_padded n w :
  is_endif_keyword (padded n w) (length w) = closes w.
Proof.
  unfold is_endif_keyword, closes. rewrite !keyword_text by done.
  rewrite <- !bool_decide_or. apply bool_decide_ext.
  rewrite !elem_of_cons, elem_of_nil. naive_solver.
Qed.

Lemma is_routine_directive_padded n w :
  is_routine_directive (padded n w) (length w) = routine_word w.
Proof.
  unfold is_routine_directive, routine_word.
  induction ROUTINE_DIRECTIVES as [|d ds IH]; simpl existsb.
  - symmetry. apply bool_decide_eq_false. apply not_elem_of_nil.
  - rewrite IH. unfold text_match. rewrite memcmp_padded, <- bool_decide_or.
    apply bool_decide_ext. rewrite fmap_cons, elem_of_cons. naive_solver.
Qed.

(** ** Item lengths *)

Lemma close_len_bounds ps cs n :
  close_len ps cs = Some n → (0 < n ≤ length cs)%nat.
Proof.
  revert n. induction cs as [|c cs IH]; intros n; simpl; [done|].
  destruct (c =? 0); [done|].
  destruct ps.
  - destruct ((c =? _) && (peek cs =? _)) eqn:E.
    + intros [= <-]. destruct cs; simpl in *; lia.
    + destruct (close_len true cs); simpl; [|done].
      intros [= <-]. specialize (IH _ eq_refl). lia.
  - destruct (c =? _); [intros [= <-]; lia|].
    destruct (close_len false cs); simpl; [|done].
    intros [= <-]. specialize (IH _ eq_refl). lia.
Qed.

Lemma next_item_bounds d1 cs it n :
  peek cs ≠ 0 → next_item d1 cs = Some (it, n) → (0 < n ≤ length cs)%nat.
Proof.
  intros Hne. pose proof (peek_nonzero_length cs Hne).
  unfold next_item. intros Hn.
  destruct ((peek cs =? _) || _).
  - destruct (_ && _); [simplify_eq; lia|].
    set (k := if peek cs =? _ then 2%nat else 1%nat) in *.
    destruct (peek (drop k cs) =? _).
    all: destruct (close_len _ _) as [m|] eqn:Hc; simplify_eq/=.
    all: apply close_len_bounds in Hc; rewrite length_drop in Hc; lia.
  - destruct (d1 && _) eqn:Hw; simplify_eq.
    { apply andb_true_iff in Hw as [_ Hw]. rewrite keyword_of_length.
      pose proof (span_len_le is_ascii_letter cs).
      pose proof (span_len_pos is_ascii_letter cs eq_refl Hw). lia. }
    pose proof (span_len_le in_string (drop 1 cs)) as H1.
    pose proof (span_len_le in_line_comment (drop 1 cs)) as H2.
    rewrite length_drop in H1, H2.
    destruct (peek cs =? c! "'"); simplify_eq.
    { destruct (peek (drop _ cs) =? _) eqn:Hp; [|lia].
      assert (1 + span_len in_string (drop 1 cs) < length cs)%nat
        by (apply peek_drop_length; lia). lia. }
    destruct (peek cs =? c! "/"); simplify_eq; [|lia].
    destruct (peek (drop 1 cs) =? _); lia.
Qed.

(** ** Refinement of the loop *)

Section refinement.
Context `{TSLexerOk L}.

Lemma skip_to_close_spec fuel l ps saw :
  (length (rest l) < fuel)%nat →
  match close_len ps (rest l) with
  | Some n =>
    skip_to_close fuel l ps saw
    = Ret (true, (λ b, b || existsb is_newline (take n (rest l))) <$> saw, advs n l)
  | None => ∃ k saw', skip_to_close fuel l ps saw = Ret (false, saw', advs k l)
  end.
Proof.
  revert l saw. induction fuel as [|f IH]; intros l saw Hf; [lia|].
  simpl. rewrite (lookahead_rest l).
  destruct (rest l) as [|c cs] eqn:E; simpl; [by exists 0%nat, saw|].
  destruct (c =? 0); [by exists 0%nat, saw|].
  assert (rest (advance false l) = cs) as Hr by (by rewrite rest_advance, E).
  rewrite lookahead_rest, Hr.
  set (hit := if ps then _ else _). destruct hit eqn:Hhit; subst hit.
  - destruct ps; simpl.
    + apply andb_true_iff in Hhit as [Hc Hp].
      assert (is_newline c = false) as -> by (unfold is_newline; lia).
      do 3 f_equal. destruct saw as [b|]; simpl; [|done]. f_equal.
      destruct cs as [|c2 cs]; simpl in *; [by rewrite orb_false_r|].
      assert (is_newline c2 = false) as -> by (unfold is_newline; lia).
      by rewrite orb_false_r.
    + do 3 f_equal. destruct saw as [b|]; simpl; [|done]. f_equal.
      assert (is_newline c = false) as -> by (unfold is_newline; lia).
      by rewrite orb_false_r.
  - specialize (IH (advance false l)
      ((λ b, if is_newline c then true else b) <$> saw)).
    rewrite Hr in IH. specialize (IH ltac:(simpl in Hf; lia)).
    destruct (close_len ps cs) as [n|]; simpl.
    + rewrite IH. do 3 f_equal. destruct saw as [b|]; simpl; [|done]. f_equal.
      destruct (is_newline c), b; simpl; done.
    + destruct IH as (k & saw' & ->). by exists (S k), saw'.
Qed.

Lemma fragment_text_spec fuel st l :
  (length (rest l) < fuel)%nat →
  peek (rest l) ≠ 0 →
  (peek (rest l) =? c! "{") || (peek (rest l) =? c! "(") = false →
  ∃ it n, next_item (depth st =? 1) (rest l) = Some (it, n)
    ∧ fragment_text fuel st l = Ret (Continue (apply_item it st) (advs n l)).
Proof.
  intros Hf Hne Hb. unfold next_item, fragment_text. rewrite Hb.
  rewrite (lookahead_rest l).
  destruct ((depth st =? 1) && is_ascii_letter (peek (rest l))).
  { eexists _, _. split; [done|].
    change (replicate 16 0) with (padded 16 []).
    rewrite read_ascii_keyword_spec by (simpl; lia). change (16 - 1)%nat with 15%nat.
    cbn zeta. rewrite res_bind_ret, lookahead_rest, rest_advs.
    rewrite is_routine_directive_padded. simpl.
    by case_match. }
  destruct (Z.eqb_spec (peek (rest l)) (c! "'")) as [Hq|_].
  { eexists _, _. split; [done|]. rewrite Hq. simpl.
    rewrite skip_while_spec by
      (done || rewrite rest_advance; destruct (rest l); simpl in *; lia).
    rewrite res_bind_ret, rest_advance, <- drop_tail.
    change (advs ?n (advance false l)) with (advs (S n) l).
    rewrite lookahead_rest, rest_advs. simpl.
    set (n := span_len _ _). destruct (peek (drop (S n) (rest l)) =? _).
    - by rewrite advs_add.
    - by rewrite Nat.add_0_r. }
  destruct (Z.eqb_spec (peek (rest l)) (c! "/")) as [Hs|_].
  { eexists _, _. split; [done|]. rewrite Hs. simpl.
    rewrite lookahead_rest, rest_advance, <- drop_tail.
    destruct (peek (drop 1 (rest l)) =? _); [|done].
    rewrite skip_while_spec by
      (done || rewrite rest_advance; destruct (rest l); simpl in *; lia).
    by rewrite res_bind_ret, rest_advance, <- drop_tail. }
  eexists _, _. split; [done|]. simpl. unfold is_newline.
  by destruct (_ && _), (_ || _).
Qed.

Lemma fragment_bracket_spec fuel st l :
  (length (rest l) < fuel)%nat →
  let ps := peek (rest l) =? c! "(" in
  (peek (rest l) =? c! "{") || ps = true →
  match next_item (depth st =? 1) (rest l) with
  | Some (it, n) =>
    fragment_bracket fuel st l ps = Ret (Continue (apply_item it st) (advs n l))
  | None => ∃ k, fragment_bracket fuel st l ps = Ret (ReturnFalse (advs k l))
  end.
Proof.
  intros Hf ps Hb. unfold next_item, fragment_bracket. cbn zeta.
  fold ps. rewrite Hb.
  rewrite (lookahead_rest (advance false l)), rest_advance, <- drop_tail.
  destruct (ps && negb (peek (drop 1 (rest l)) =? _)); [done|].
  set (k := if ps then 2%nat else 1%nat).
  replace (if ps then advance false (advance false l) else advance false l)
    with (advs k l) by (unfold k; by destruct ps).
  rewrite lookahead_rest, rest_advs.
  destruct (peek (drop k (rest l)) =? _); simpl negb; cbn iota.
  - change (advance false (advs k l)) with (advs 1 (advs k l)).
    rewrite <- advs_add. change (replicate 8 0) with (padded 8 []).
    rewrite read_ascii_keyword_spec by (simpl; lia). change (8 - 1)%nat with 7%nat.
    cbn zeta. rewrite res_bind_ret, rest_advs, <- advs_add.
    rewrite is_if_keyword_padded, is_endif_keyword_padded.
    set (kw := keyword_of 7 _). set (k' := (k + 1 + length kw)%nat).
    pose proof (skip_to_close_spec fuel (advs k' l) ps None) as Hc.
    rewrite rest_advs in Hc. specialize (Hc ltac:(rewrite length_drop; lia)).
    destruct (close_len ps (drop k' (rest l))) as [n|]; simpl.
    + rewrite Hc, <- advs_add. done.
    + destruct Hc as (k2 & saw' & ->). exists (k' + k2)%nat. by rewrite advs_add.
  - pose proof (skip_to_close_spec fuel (advs k l) ps
      (Some (saw_newline st))) as Hc.
    rewrite rest_advs in Hc. specialize (Hc ltac:(rewrite length_drop; lia)).
    destruct (close_len ps (drop k (rest l))) as [n|]; simpl.
    + rewrite Hc, <- advs_add. done.
    + destruct Hc as (k2 & saw' & ->). exists (k + k2)%nat. by rewrite advs_add.
Qed.

Lemma fragment_step_spec fuel st l :
  (length (rest l) < fuel)%nat → peek (rest l) ≠ 0 →
  match next_item (depth st =? 1) (rest l) with
  | Some (it, n) =>
    fragment_step fuel st l = Ret (Continue (apply_item it st) (advs n l))
  | None => ∃ k, fragment_step fuel st l = Ret (ReturnFalse (advs k l))
  end.
Proof.
  intros Hf Hne. unfold fragment_step. rewrite (lookahead_rest l).
  replace (peek (rest l) =? 0) with false by lia. rewrite <- negb_orb.
  destruct ((peek (rest l) =? _) || (peek (rest l) =? _)) eqn:Hb.
  - by apply fragment_bracket_spec.
  - destruct (fragment_text_spec fuel st l Hf Hne Hb) as (it & n & -> & ->). done.
Qed.

(** The loop reaches depth zero exactly when the step relation does, and
    then in the same state at the same place; otherwise it returns
    [false].  In both cases it terminates. *)
Lemma fragment_loop_spec fuel st l :
  (length (rest l) < fuel)%nat →
  (∃ its st' k, runs st (rest l) its st' (drop k (rest l))
     ∧ fragment_loop fuel st l = Ret (Some st', advs k l))
  ∨ (∀ its st' cs', ¬ runs st (rest l) its st' cs')
    ∧ ∃ k, fragment_loop fuel st l = Ret (None, advs k l).
Proof.
  revert st l. induction fuel as [|f IH]; intros st l Hf; [lia|].
  cbn [fragment_loop].
  destruct (Z.ltb_spec 0 (depth st)) as [Hd|Hd]; cycle 1.
  { left. exists [], st, 0%nat. rewrite drop_0. split; [|done].
    constructor. lia. }
  destruct (decide (peek (rest l) = 0)) as [Hz|Hz].
  { right. split.
    - intros its st' cs' Hrun. inversion Hrun; subst; [lia|done].
    - exists 0%nat. unfold fragment_step. by rewrite lookahead_rest, Hz. }
  pose proof (fragment_step_spec (S f) st l Hf Hz) as Hstep.
  destruct (next_item _ _) as [[it n]|] eqn:Hit; cycle 1.
  { right. split.
    - intros its st' cs' Hrun. inversion Hrun; subst; [lia|congruence].
    - destruct Hstep as [k ->]. by exists k. }
  rewrite Hstep, res_bind_ret.
  pose proof (next_item_bounds _ _ _ _ Hz Hit).
  destruct (IH (apply_item it st) (advs n l)) as [IH'|IH'].
  { rewrite rest_advs, length_drop. lia. }
  all: rewrite rest_advs in IH'.
  - left. destruct IH' as (its & st' & k & Hrun & ->).
    exists (it :: its), st', (n + k)%nat. rewrite <- drop_drop, advs_add.
    split; [|done]. by econstructor.
  - right. destruct IH' as [Hno [k ->]]. split.
    + intros its st' cs' Hrun. inversion Hrun; subst; [lia|].
      simplify_eq. by eapply Hno.
    + exists (n + k)%nat. by rewrite advs_add.
Qed.
End refinement.

(** ** The fragment token *)

(** The length of the opening conditional directive of [cs]. *)
Definition fragment_open (cs : list Z) : option nat :=
  match next_item false cs with
  | Some (IDirective kw, n) => if opens kw then Some n else None
  | _ => None
  end.

(** [fragment_token valid cs t tl]: the input [cs] starts with a fragment
    that is emitted as the token [t], with [tl] left. *)
Definition fragment_token (valid : symbols) (cs : list Z) (t : TokenType)
    (tl : list Z) : Prop :=
  ∃ n its st cs',
    fragment_open cs = Some n
    ∧ runs initial_frag (drop n cs) its st cs'
    ∧ saw_newline st = false
    ∧ saw_directive st && directives_only st = false
    ∧ if saw_top_level_semi st && valid PP_FRAGMENT_STMT
      then t = PP_FRAGMENT_STMT ∧ tl = cs'
      else valid PP_FRAGMENT_EXPR = true ∧ t = PP_FRAGMENT_EXPR
           ∧ tl = drop (span_len in_chain cs') cs'.

Lemma runs_deterministic st cs its1 st1 cs1 its2 st2 cs2 :
  runs st cs its1 st1 cs1 → runs st cs its2 st2 cs2 →
  its1 = its2 ∧ st1 = st2 ∧ cs1 = cs2.
Proof.
  intros Hr. revert its2 st2 cs2.
  induction Hr as [st cs Hd|st cs it n its st' cs' Hd Hp Hit Hr IH];
    intros its2 st2 cs2 Hr2; inversion Hr2; subst; try lia; [done|].
  simplify_eq. edestruct IH as (-> & -> & ->); done.
Qed.

Lemma fragment_token_deterministic valid cs t1 tl1 t2 tl2 :
  fragment_token valid cs t1 tl1 → fragment_token valid cs t2 tl2 →
  t1 = t2 ∧ tl1 = tl2.
Proof.
  intros (n1 & its1 & st1 & cs1 & Hi1 & Hr1 & _ & _ & Ht1).
  intros (n2 & its2 & st2 & cs2 & Hi2 & Hr2 & _ & _ & Ht2).
  simplify_eq.
  destruct (runs_deterministic _ _ _ _ _ _ _ _ Hr1 Hr2) as (-> & -> & ->).
  case_match; naive_solver.
Qed.

Lemma fragment_token_valid valid cs t tl :
  fragment_token valid cs t tl → valid t = true.
Proof.
  intros (n & its & st & cs' & _ & _ & _ & _ & Ht).
  destruct (saw_top_level_semi st); simpl in Ht; [|naive_solver].
  destruct (valid PP_FRAGMENT_STMT) eqn:E; naive_solver.
Qed.

Section token.
Context `{TSLexerOk L}.

(** The code up to the end of the opening directive. *)
Lemma scan_fragment_open fuel l valid :
  (length (rest l) < fuel)%nat →
  match fragment_open (rest l) with
  | Some n =>
    scan_fragment fuel l valid
    = '(r, l') ← fragment_loop fuel initial_frag (advs n l);
      match r with
      | None => Ret (false, l')
      | Some st => select_fragment fuel st l' valid
      end
  | None => ∃ k, scan_fragment fuel l valid = Ret (false, advs k l)
  end.
Proof.
  intros Hf. unfold fragment_open, next_item, scan_fragment.
  rewrite (lookahead_rest l), <- negb_orb.
  destruct (_ || _) eqn:Hb; cbn zeta; simpl negb; cbn iota; cycle 1.
  { repeat case_match; simplify_eq; by exists 0%nat. }
  rewrite (lookahead_rest (advance false l)), rest_advance, <- drop_tail.
  set (ps := peek (rest l) =? _).
  destruct (ps && negb (peek (drop 1 (rest l)) =? _)); [by exists 1%nat|].
  set (k := if ps then 2%nat else 1%nat).
  replace (if ps then advance false (advance false l) else advance false l)
    with (advs k l) by (unfold k; by destruct ps).
  rewrite lookahead_rest, rest_advs.
  destruct (peek (drop k (rest l)) =? _); simpl negb; cbn iota; cycle 1.
  { destruct (close_len _ _); by exists k. }
  change (advance false (advs k l)) with (advs 1 (advs k l)).
  rewrite <- advs_add. change (replicate 8 0) with (padded 8 []).
  rewrite read_ascii_keyword_spec by (simpl; lia). change (8 - 1)%nat with 7%nat.
  cbn zeta. rewrite res_bind_ret, rest_advs, <- advs_add, is_if_keyword_padded.
  set (kw := keyword_of 7 _). set (k' := (k + 1 + length kw)%nat).
  pose proof (skip_to_close_spec fuel (advs k' l) ps None) as Hc.
  rewrite rest_advs in Hc. specialize (Hc ltac:(rewrite length_drop; lia)).
  destruct (close_len ps (drop k' (rest l))) as [m|]; simpl;
    destruct (opens kw); simpl; try by exists k'.
  - by rewrite Hc, res_bind_ret, <- advs_add.
  - destruct Hc as (k2 & saw & ->). exists (k' + k2)%nat. by rewrite advs_add.
Qed.

(** The scanner emits a fragment token exactly for the inputs that start
    with one, of the same type and length. *)
Theorem scan_fragment_spec fuel l valid :
  (length (rest l) < fuel)%nat →
  (∃ t k, fragment_token valid (rest l) t (drop k (rest l))
     ∧ scan_fragment fuel l valid = Ret (true, emit t (mark_end (advs k l))))
  ∨ (∀ t tl, ¬ fragment_token valid (rest l) t tl)
    ∧ ∃ k, scan_fragment fuel l valid = Ret (false, advs k l).
Proof.
  intros Hf. pose proof (scan_fragment_open fuel l valid Hf) as Ho.
  destruct (fragment_open (rest l)) as [n|] eqn:Hn; cycle 1.
  { right. split; [|done]. intros t tl (? & _ & _ & _ & ? & _). congruence. }
  rewrite Ho. clear Ho.
  pose proof (fragment_loop_spec fuel initial_frag (advs n l)) as Hloop.
  rewrite rest_advs in Hloop.
  destruct Hloop as [(its & st & k & Hrun & ->)|[Hno [k ->]]].
  { rewrite length_drop. lia. }
  2:{ right. split.
    - intros t tl (n' & its & st & cs' & ? & Hrun & _). simplify_eq. by eapply Hno.
    - exists (n + k)%nat. by rewrite advs_add. }
  rewrite res_bind_ret, <- advs_add. rewrite drop_drop in Hrun.
  set (m := (n + k)%nat) in *. unfold select_fragment.
  assert (∀ t tl, fragment_token valid (rest l) t tl →
    saw_newline st = false ∧ saw_directive st && directives_only st = false
    ∧ if saw_top_level_semi st && valid PP_FRAGMENT_STMT then True
      else valid PP_FRAGMENT_EXPR = true) as Hinv.
  { intros t tl (n' & its' & st' & cs' & ? & Hrun' & ? & ? & ?). simplify_eq.
    destruct (runs_deterministic _ _ _ _ _ _ _ _ Hrun Hrun') as (_ & <- & _).
    repeat split; [done..|]. case_match; naive_solver. }
  destruct (saw_newline st) eqn:Hnl; simpl orb; cbn iota.
  { right. split; [|by eexists]. naive_solver. }
  destruct (saw_directive st && directives_only st) eqn:Hdo.
  { right. split; [|by eexists]. naive_solver. }
  destruct (saw_top_level_semi st && valid PP_FRAGMENT_STMT) eqn:Hs.
  { left. exists PP_FRAGMENT_STMT, m. split; [|done].
    exists n, its, st, (drop m (rest l)). by rewrite Hs. }
  destruct (valid PP_FRAGMENT_EXPR) eqn:He; simpl negb; cbn iota; cycle 1.
  { right. split; [|by eexists]. naive_solver. }
  left. exists PP_FRAGMENT_EXPR, (m + span_len in_chain (drop m (rest l)))%nat.
  rewrite skip_while_spec, res_bind_ret, rest_advs, <- advs_add
    by (done || rewrite rest_advs, length_drop; lia).
  split; [|done]. exists n, its, st, (drop m (rest l)). rewrite Hs.
  by rewrite drop_drop.
Qed.
End token.
