(* ===== verification/FragmentText.v ===== *)
(** * Fragments: the text of an item

    [item_text] says which text an item of a fragment body stands for and what
    may follow it: a directive or a comment ends at its first closing mark, a
    word at its last letter or at the size of the buffer, a string at its
    closing quote or at the end of the line.  The relation is exact: it holds
    of precisely the texts that [next_item] of [FragmentSpec.v] cuts off. *)

From S2P Require Import Prelude.
From S2P Require Import Chars.
From S2P Require Import Fragment.
From S2P Require Import FragmentSpec.

(** ** The texts *)

Definition opener (paren_star : bool) : list Z :=
  if paren_star then codes "(*" else codes "{".

Definition closer (paren_star : bool) : list Z :=
  if paren_star then codes "*)" else codes "}".

(** A text that ends with its first closing mark and holds no NUL. *)
Inductive closed (paren_star : bool) : list Z → Prop :=
  | closed_mark : closed paren_star (closer paren_star)
  | closed_char c t :
    c ≠ 0 → ¬ closer paren_star `prefix_of` c :: t → closed paren_star t →
    closed paren_star (c :: t).

(** The letters [w] read into a buffer of [cap] characters in front of [tl]. *)
Definition letters_read (cap : nat) (w tl : list Z) : Prop :=
  Forall (λ c, is_ascii_letter c = true) w ∧ (length w ≤ cap)%nat
  ∧ (length w = cap ∨ is_ascii_letter (peek tl) = false).

(** [item_text d1 it txt tl]: in front of [tl], the text [txt] is the item
    [it]; [d1] says whether the place is at depth 1. *)
Definition item_text (d1 : bool) (it : item) (txt tl : list Z) : Prop :=
  match it with
  | IWord w more =>
    d1 = true ∧ txt ≠ [] ∧ letters_read 15 txt tl ∧ tolower <$> txt = w
    ∧ more = is_ascii_letter (peek tl)
  | IString =>
    ∃ body, Forall (λ c, in_string c = true) body
      ∧ (txt = [c! "'"] ++ body ++ [c! "'"]
         ∨ txt = [c! "'"] ++ body ∧ in_string (peek tl) = false ∧ peek tl ≠ c! "'")
  | ISlash =>
    txt = [c! "/"] ∧ peek tl ≠ c! "/"
    ∨ (∃ body, txt = codes "//" ++ body ∧ Forall (λ c, in_line_comment c = true) body
         ∧ in_line_comment (peek tl) = false)
  | IChar c =>
    txt = [c] ∧ c ≠ 0 ∧ (c ∉ codes "{('/") ∧ (d1 = true → is_ascii_letter c = false)
  | IParen => txt = codes "(" ∧ peek tl ≠ c! "*"
  | IComment t => ∃ ps, txt = opener ps ++ t ∧ peek t ≠ c! "$" ∧ closed ps t
  | IDirective kw =>
    ∃ ps name arg, txt = opener ps ++ codes "$" ++ name ++ arg
      ∧ letters_read 7 name arg ∧ tolower <$> name = kw ∧ closed ps arg
  end.

(** ** Closing marks and names *)

Lemma closer_prefix ps c t :
  closer ps `prefix_of` c :: t
  ↔ (if ps then (c =? c! "*") && (peek t =? c! ")") else c =? c! "}") = true.
Proof.
  destruct ps.
  - change (closer true) with [42; 41]. split.
    + intros [k Hk]. by simplify_eq/=.
    + intros [Hc Ht]%andb_true_iff. destruct t as [|c2 t]; simpl in Ht; [lia|].
      exists t. simpl. f_equal; [lia|]. f_equal. lia.
  - change (closer false) with [125]. split.
    + intros [k Hk]. by simplify_eq/=.
    + intros Hc. exists t. simpl. f_equal. lia.
Qed.

Lemma closed_nonempty ps t : closed ps t → t ≠ [].
Proof. by destruct 1; [destruct ps|]. Qed.

Lemma peek_app (t tl : list Z) : t ≠ [] → peek (t ++ tl) = peek t.
Proof. by destruct t. Qed.

Lemma closed_close_len ps t tl : closed ps t → close_len ps (t ++ tl) = Some (length t).
Proof.
  induction 1 as [|c t Hz Hp Ht IH]; [by destruct ps|].
  simpl. replace (c =? 0) with false by lia.
  rewrite peek_app, IH by (by eapply closed_nonempty). rewrite closer_prefix in Hp.
  by destruct (if ps then _ else _); [destruct Hp|].
Qed.

Lemma close_len_closed ps cs n : close_len ps cs = Some n → closed ps (take n cs).
Proof.
  revert n. induction cs as [|c cs IH]; intros n; [done|].
  destruct (decide (closer ps `prefix_of` c :: cs)) as [Hp|Hp].
  - pose proof Hp as [k Hk]. rewrite closer_prefix in Hp. simpl. rewrite Hp.
    destruct (c =? 0); [done|]. intros [= <-]. rewrite Hk.
    replace (if ps then 2%nat else 1%nat) with (length (closer ps)) by (by destruct ps).
    rewrite take_app_length. constructor.
  - pose proof Hp as Hp'. rewrite closer_prefix in Hp'. simpl.
    destruct (Z.eqb_spec c 0); [done|].
    destruct (if ps then _ else _); [by destruct Hp'|].
    destruct (close_len ps cs) as [m|] eqn:Hm; simpl; [|done]. intros [= <-].
    pose proof (IH m eq_refl) as Ht. simpl. constructor; [done| |done].
    intros [k Hk]. apply Hp. exists (k ++ drop m cs). rewrite (assoc_L (++)), <- Hk.
    simpl. by rewrite take_drop.
Qed.

Lemma letters_keyword cap w tl :
  letters_read cap w tl → keyword_of cap (w ++ tl) = tolower <$> w.
Proof.
  intros (Hw & Hl & Hc). unfold keyword_of. f_equal.
  assert (min cap (span_len is_ascii_letter (w ++ tl)) = length w) as ->;
    [|by rewrite take_app_length].
  destruct Hc as [Hc|Hc]; [|rewrite span_len_app by (done || by left); lia].
  assert (length w ≤ span_len is_ascii_letter (w ++ tl))%nat; [|lia].
  clear Hl Hc. induction Hw as [|c w Hc _ IH]; simpl; [lia|]. rewrite Hc. lia.
Qed.

Lemma keyword_letters cap cs :
  let n := length (keyword_of cap cs) in
  letters_read cap (take n cs) (drop n cs) ∧ tolower <$> take n cs = keyword_of cap cs.
Proof.
  cbn zeta. rewrite keyword_of_length. split; [|done].
  pose proof (span_len_le is_ascii_letter cs) as Hle.
  split; [rewrite <- take_take; apply Forall_take, span_len_take|].
  rewrite length_take. split; [lia|].
  destruct (decide (cap ≤ span_len is_ascii_letter cs)%nat); [left; lia|].
  right. rewrite Nat.min_r by lia. by apply span_len_stop.
Qed.

Lemma take_add {A} (n m : nat) (cs : list A) :
  take (n + m) cs = take n cs ++ take m (drop n cs).
Proof. by rewrite take_take_drop. Qed.

Lemma take_peek cs : peek cs ≠ 0 → take 1 cs = [peek cs].
Proof. by destruct cs. Qed.

Lemma take_opener (ps : bool) cs :
  (peek cs =? c! "{") || ps = true → (peek cs =? c! "(") = ps →
  ps && negb (peek (drop 1 cs) =? c! "*") = false →
  take (if ps then 2%nat else 1%nat) cs = opener ps.
Proof.
  destruct ps.
  - change (opener true) with [40; 42]. intros _ H1 H2.
    destruct cs as [|c [|c2 cs]]; simpl in *; [lia..|].
    rewrite take_0. f_equal; [lia|]. f_equal. lia.
  - change (opener false) with [123]. intros H1 _ _.
    destruct cs as [|c cs]; simpl in *; [lia|]. rewrite take_0. f_equal. lia.
Qed.

(** ** The next item has its text *)

Lemma string_item_text d1 cs :
  peek cs = c! "'" →
  let n := span_len in_string (drop 1 cs) in
  let close := if peek (drop (1 + n) cs) =? c! "'" then 1%nat else 0%nat in
  let k := (1 + n + close)%nat in
  item_text d1 IString (take k cs) (drop k cs).
Proof.
  intros Hq. destruct cs as [|c cs]; simpl in Hq; [lia|]. subst c.
  rewrite skipn_cons, drop_0. cbn zeta. set (n := span_len in_string cs).
  exists (take n cs). split; [apply span_len_take|]. simpl.
  destruct (Z.eqb_spec (peek (drop n cs)) (c! "'")) as [Hc|Hc].
  - left. rewrite Nat.add_1_r. f_equal. rewrite <- Nat.add_1_r, take_add.
    rewrite take_peek by lia. by rewrite Hc.
  - right. rewrite Nat.add_0_r. split_and!; [done| |done]. by apply span_len_stop.
Qed.

Lemma slash_item_text d1 cs :
  peek cs = c! "/" →
  let k := if peek (drop 1 cs) =? c! "/" then (1 + span_len in_line_comment (drop 1 cs))%nat
           else 1%nat in
  item_text d1 ISlash (take k cs) (drop k cs).
Proof.
  intros Hs k. destruct cs as [|c cs]; simpl in Hs; [lia|]. subst c.
  unfold k. rewrite skipn_cons, drop_0.
  destruct (Z.eqb_spec (peek cs) (c! "/")) as [Hc|Hc]; [|by left].
  right. destruct cs as [|c cs]; simpl in Hc; [lia|]. subst c.
  exists (take (span_len in_line_comment cs) cs). simpl. split_and!.
  - done.
  - apply span_len_take.
  - by apply span_len_stop.
Qed.

Lemma bracket_item_text d1 cs it n :
  (peek cs =? c! "{") || (peek cs =? c! "(") = true →
  next_item d1 cs = Some (it, n) → item_text d1 it (take n cs) (drop n cs).
Proof.
  intros Hb. unfold next_item. cbn zeta. rewrite Hb.
  set (ps := peek cs =? c! "(") in *. destruct (ps && _) eqn:Hp; intros Hn; simplify_eq/=.
  { apply andb_true_iff in Hp as [Hp Hs]. rewrite take_peek by lia. split; [|lia].
    unfold ps in Hp. vm_compute codes. f_equal. lia. }
  pose proof (take_opener ps cs Hb eq_refl Hp) as Hop.
  set (k := if ps then 2%nat else 1%nat) in *.
  destruct (peek (drop k cs) =? c! "$") eqn:Hd.
  - destruct (close_len _ _) as [m|] eqn:Hm; simplify_eq/=.
    set (cs1 := drop (k + 1) cs) in *. set (kw := keyword_of 7 cs1) in *.
    destruct (keyword_letters 7 cs1) as [(Hl1 & Hl2 & Hl3) Hkw]. fold kw in Hl1, Hl2, Hl3, Hkw.
    assert (drop (k + 1 + length kw) cs = drop (length kw) cs1) as Hdr
      by (unfold cs1; by rewrite drop_drop).
    rewrite Hdr in Hm. pose proof (close_len_closed _ _ _ Hm) as Hcl.
    exists ps, (take (length kw) cs1), (take m (drop (length kw) cs1)).
    split_and!; [|split_and!; [done|done|]|done|done].
    + rewrite !take_add, Hop, <- !(assoc_L (++)), Hdr. fold cs1.
      rewrite (take_peek (drop k cs)) by lia.
      by replace (peek (drop k cs)) with (c! "$") by lia.
    + destruct Hl3 as [?|Hl3]; [by left|right].
      rewrite <- (take_drop m (drop (length kw) cs1)) in Hl3.
      by rewrite peek_app in Hl3 by (by eapply closed_nonempty).
  - destruct (close_len _ _) as [m|] eqn:Hm; simplify_eq/=.
    pose proof (close_len_closed _ _ _ Hm) as Hcl.
    exists ps. split_and!; [by rewrite take_add, Hop| |done].
    rewrite <- (peek_app _ (drop m (drop k cs))), take_drop by (by eapply closed_nonempty). lia.
Qed.

Lemma next_item_text d1 cs it n :
  peek cs ≠ 0 → next_item d1 cs = Some (it, n) →
  item_text d1 it (take n cs) (drop n cs).
Proof.
  intros Hz. destruct ((peek cs =? c! "{") || (peek cs =? c! "(")) eqn:Hb;
    [by apply bracket_item_text|].
  unfold next_item. cbn zeta. rewrite Hb.
  destruct (d1 && is_ascii_letter (peek cs)) eqn:Hw; intros Hn; simplify_eq/=.
  { destruct (keyword_letters 15 cs) as [Hl Hkw]. apply andb_true_iff in Hw as [-> Hw].
    split_and!; [done| |done|done|done].
    rewrite keyword_of_length. pose proof (span_len_pos is_ascii_letter cs eq_refl Hw).
    destruct cs; [done|]. by destruct (min _ _) eqn:?; [lia|]. }
  destruct (Z.eqb_spec (peek cs) (c! "'")) as [Hq|Hq]; simplify_eq/=;
    [by apply string_item_text|].
  destruct (Z.eqb_spec (peek cs) (c! "/")) as [Hs|Hs]; simplify_eq/=;
    [by apply slash_item_text|].
  rewrite take_peek by done. split_and!; [done|done| |].
  - change (codes "{('/") with [123; 40; 39; 47]. rewrite !not_elem_of_cons.
    split_and!; [lia..|apply not_elem_of_nil].
  - intros ->. by destruct (is_ascii_letter (peek cs)).
Qed.

(** ** A text of an item is the next item *)

Lemma string_text_next d1 (body tl : list Z) :
  Forall (λ c, in_string c = true) body →
  next_item d1 (c! "'" :: body ++ c! "'" :: tl) = Some (IString, (2 + length body)%nat)
  ∧ (in_string (peek tl) = false → peek tl ≠ c! "'" →
     next_item d1 (c! "'" :: body ++ tl) = Some (IString, S (length body))).
Proof.
  intros Hb. unfold next_item. simpl. rewrite !andb_false_r, !drop_0. split.
  - rewrite span_len_app, drop_app_length by (done || by left). simpl. do 2 f_equal. lia.
  - intros Hs Hq. rewrite span_len_app, drop_app_length by (done || by left).
    replace (peek tl =? _) with false by lia. do 2 f_equal. lia.
Qed.

Lemma slash_text_next d1 (body tl : list Z) :
  Forall (λ c, in_line_comment c = true) body → in_line_comment (peek tl) = false →
  next_item d1 (codes "//" ++ body ++ tl) = Some (ISlash, (2 + length body)%nat).
Proof.
  intros Hb Hs. change (codes "//") with [47; 47]. unfold next_item. simpl.
  by rewrite !andb_false_r, span_len_app by (done || by left).
Qed.

Lemma bracket_text_next d1 (ps : bool) (t tl : list Z) :
  let k := if ps then 2%nat else 1%nat in
  next_item d1 (opener ps ++ t ++ tl)
  = if peek (t ++ tl) =? c! "$" then
      let kw := keyword_of 7 (drop 1 (t ++ tl)) in
      (λ n, (IDirective kw, (k + 1 + length kw + n)%nat))
        <$> close_len ps (drop (1 + length kw) (t ++ tl))
    else (λ n, (IComment (take n (t ++ tl)), (k + n)%nat)) <$> close_len ps (t ++ tl).
Proof. destruct ps; by destruct (t ++ tl). Qed.

Lemma item_text_next d1 it txt tl :
  item_text d1 it txt tl →
  next_item d1 (txt ++ tl) = Some (it, length txt) ∧ peek (txt ++ tl) ≠ 0.
Proof.
  destruct it as [w more| | |c| |t|kw]; cbn [item_text].
  - intros (-> & Hne & Hl & <- & ->). pose proof Hl as (Hw & _).
    destruct txt as [|c txt]; [done|]. apply Forall_cons in Hw as [Hc _].
    split; [|simpl; char_lia]. unfold next_item.
    rewrite (letters_keyword 15 _ tl Hl), length_fmap, drop_app_length. simpl.
    replace (c =? 123) with false by char_lia. replace (c =? 40) with false by char_lia.
    simpl. by rewrite Hc.
  - intros (body & Hb & Hcase). destruct (string_text_next d1 body tl Hb) as [H1 H2].
    destruct Hcase as [->|(-> & Hs & Hq)]; (split; [|done]).
    + simpl. rewrite <- (assoc_L (++)). simpl. rewrite H1, length_app. simpl.
      do 2 f_equal. lia.
    + by apply H2.
  - intros [[-> Hs]|(body & -> & Hb & Hs)]; (split; [|done]).
    + unfold next_item. simpl. rewrite !andb_false_r, drop_0.
      by replace (peek tl =? _) with false by lia.
    + rewrite <- (assoc_L (++)), slash_text_next by done. by rewrite length_app.
  - intros (-> & Hz & Hn & Hd). split; [|done].
    change (codes "{('/") with [123; 40; 39; 47] in Hn. rewrite !not_elem_of_cons in Hn.
    destruct Hn as (? & ? & ? & ? & _). unfold next_item. simpl.
    replace (c =? 123) with false by lia. replace (c =? 40) with false by lia.
    replace (c =? 39) with false by lia. replace (c =? 47) with false by lia. simpl.
    destruct d1; simpl; [by rewrite Hd|done].
  - intros [-> Hs]. split; [|done]. unfold next_item. simpl. rewrite drop_0.
    by replace (peek tl =? _) with false by lia.
  - intros (ps & -> & Hd & Ht). split; [|by destruct ps].
    rewrite <- (assoc_L (++)), bracket_text_next. cbn zeta.
    rewrite peek_app by (by eapply closed_nonempty).
    replace (peek t =? _) with false by lia. rewrite closed_close_len by done. simpl.
    rewrite take_app_length, length_app. by destruct ps.
  - intros (ps & name & arg & -> & Hl & <- & Ha). split; [|by destruct ps].
    rewrite <- (assoc_L (++)), bracket_text_next. cbn zeta.
    change (codes "$") with [36]. simpl peek. cbn iota. simpl drop.
    assert (letters_read 7 name (arg ++ tl)) as Hl'.
    { unfold letters_read. by rewrite peek_app by (by eapply closed_nonempty). }
    rewrite drop_0, <- (assoc_L (++)), (letters_keyword 7 _ _ Hl'), length_fmap.
    rewrite drop_app_length, closed_close_len by done. simpl.
    rewrite !length_app. simpl. rewrite length_app. do 2 f_equal. destruct ps; simpl; lia.
Qed.

(** [item_text] is exact. *)
Lemma item_text_iff d1 it txt tl :
  item_text d1 it txt tl
  ↔ peek (txt ++ tl) ≠ 0 ∧ next_item d1 (txt ++ tl) = Some (it, length txt).
Proof.
  split; [intros H%item_text_next; tauto|].
  intros [Hz Hn]. pose proof (next_item_text d1 (txt ++ tl) it (length txt) Hz Hn) as Ht.
  by rewrite take_app_length, drop_app_length in Ht.
Qed.

(** ** Line breaks *)

Definition no_newline (txt : list Z) : Prop := Forall (λ c, is_newline c = false) txt.

Definition item_newline (it : item) : bool :=
  match it with
  | IChar c => is_newline c
  | IComment t => existsb is_newline t
  | _ => false
  end.

Definition is_directive (it : item) : bool :=
  match it with IDirective _ => true | _ => false end.

Lemma no_newline_Forall p txt :
  p LF = false → p CR = false → Forall (λ c, p c = true) txt → no_newline txt.
Proof.
  intros Hlf Hcr Ht. eapply Forall_impl; [exact Ht|]. simpl.
  intros c Hc. destruct (is_newline c) eqn:E; [|done]. unfold is_newline in E.
  assert (c = LF ∨ c = CR) as [->| ->] by lia; congruence.
Qed.

(** Outside directives, the text of an item has no line break unless the item
    is a line break or a comment that holds one. *)
Lemma item_text_no_newline d1 it txt tl :
  item_text d1 it txt tl → is_directive it = false → item_newline it = false →
  no_newline txt.
Proof.
  destruct it as [w more| | |c| |t|kw]; cbn [item_text is_directive item_newline];
    [.. |done]; intros Ht _ Hn.
  - destruct Ht as (_ & _ & (Hl & _) & _). by apply (no_newline_Forall is_ascii_letter).
  - destruct Ht as (body & Hb & Ht). assert (no_newline body)
      by (by apply (no_newline_Forall in_string)).
    destruct Ht as [->|[-> _]]; repeat apply Forall_app_2; by repeat constructor.
  - destruct Ht as [[-> _]|(body & -> & Hb & _)]; [by repeat constructor|].
    apply Forall_app_2; [by repeat constructor|].
    by apply (no_newline_Forall in_line_comment).
  - destruct Ht as [-> _]. by repeat constructor.
  - destruct Ht as [-> _]. by repeat constructor.
  - destruct Ht as (ps & -> & _ & _). apply Forall_app_2.
    + destruct ps; by repeat constructor.
    + clear -Hn. induction t as [|c t IH]; constructor; simpl in Hn;
        apply orb_false_iff in Hn as [? ?]; [done|auto].
Qed.
