(* ===== verification/Scanner.v ===== *)
(** * The entry points of [scanner.c]

    The five functions tree-sitter calls.  The scanner keeps no state between
    calls: its payload is the null pointer, it serializes to zero bytes, and
    [tree_sitter_pascal_external_scanner_scan] ignores the payload.

    [scan_cases] is the summary of a call: on every input the scan terminates
    within its fuel and stays inside its buffers, and it either emits a valid,
    non-empty token that ends at the marked position, or returns [false]. *)

From S2P Require Import Prelude.
From S2P Require Import Lexer.
From S2P Require Import Chars.
From S2P Require Import Tokens.
From S2P Require Import Words.
From S2P Require Import Multiline.
From S2P Require Import Fragment.
From S2P Require Import FragmentSpec.

(** [void *payload]: [None] is [NULL]. *)
Definition payload := option Z.

Definition tree_sitter_pascal_external_scanner_create : payload := None.

(** The state of the heap is untouched by [destroy] and [deserialize]. *)
Definition tree_sitter_pascal_external_scanner_destroy {heap : Type}
    (p : payload) (h : heap) : heap := h.

Definition tree_sitter_pascal_external_scanner_serialize (p : payload)
    (buffer : list Z) : Z * list Z := (0, buffer).

Definition tree_sitter_pascal_external_scanner_deserialize (p : payload)
    (buffer : list Z) (length : Z) : payload := p.

(** Whether any word token is valid. *)
Definition has_word_symbol (valid_symbols : symbols) : bool :=
  valid_symbols IDENTIFIER
  || existsb (λ w, valid_symbols (token w)) CONTEXTUAL_WORDS
  || existsb (λ w, valid_symbols (rtoken w)) DCC_RESERVED_WORDS.

Section code.
Context `{TSLexer L}.

(** The code after the word scan. *)
Definition scan_after_word (fuel : nat) (l : L) (valid_symbols : symbols)
    : res (bool * L) :=
  if negb (valid_symbols PP_FRAGMENT_EXPR) && negb (valid_symbols PP_FRAGMENT_STMT)
  then Ret (false, l)
  else scan_fragment fuel l valid_symbols.

Definition tree_sitter_pascal_external_scanner_scan (fuel : nat) (p : payload)
    (l : L) (valid_symbols : symbols) : res (bool * L) :=
  if valid_symbols LITERAL_STRING_MULTILINE && (lookahead l =? c! "'") then
    scan_multiline_string fuel l
  else if has_word_symbol valid_symbols then
    '(result, l) ← scan_word_token fuel l valid_symbols;
    match result with
    | WORD_EMITTED => Ret (true, l)
    | WORD_NO_TOKEN => Ret (false, l)
    | WORD_NOT_APPLICABLE => scan_after_word fuel l valid_symbols
    end
  else scan_after_word fuel l valid_symbols.
End code.

Abbreviation scan := tree_sitter_pascal_external_scanner_scan.

(** ** Summary of a call *)

(** [token_at valid cs t tl]: scanning [cs] emits [t] and leaves [tl]. *)
Definition token_at (valid : symbols) (cs : list Z) (t : TokenType) (tl : list Z)
    : Prop :=
  if valid LITERAL_STRING_MULTILINE && (peek cs =? c! "'") then
    t = LITERAL_STRING_MULTILINE ∧ multiline_string cs = Some tl
  else
    let escaped := peek cs =? c! "&" in
    let cs' := if has_word_symbol valid && escaped then drop 1 cs else cs in
    if has_word_symbol valid && is_identifier_start (peek cs') then
      classify_word valid escaped (word_of cs') = Some t
      ∧ tl = drop (span_len is_identifier_continue cs') cs'
    else
      valid PP_FRAGMENT_EXPR || valid PP_FRAGMENT_STMT = true
      ∧ fragment_token valid cs' t tl.

Section summary.
Context `{TSLexerOk L}.

Lemma scan_after_word_spec fuel l valid :
  (length (rest l) < fuel)%nat →
  (∃ t k, valid PP_FRAGMENT_EXPR || valid PP_FRAGMENT_STMT = true
     ∧ fragment_token valid (rest l) t (drop k (rest l))
     ∧ scan_after_word fuel l valid = Ret (true, emit t (mark_end (advs k l))))
  ∨ (∀ t tl, ¬ (valid PP_FRAGMENT_EXPR || valid PP_FRAGMENT_STMT = true
                ∧ fragment_token valid (rest l) t tl))
    ∧ ∃ k, scan_after_word fuel l valid = Ret (false, advs k l).
Proof.
  intros Hf. unfold scan_after_word. rewrite <- negb_orb.
  destruct (valid PP_FRAGMENT_EXPR || valid PP_FRAGMENT_STMT); simpl; cycle 1.
  { right. split; [naive_solver|]. by exists 0%nat. }
  destruct (scan_fragment_spec fuel l valid Hf) as [(t & k & ? & ?)|[Hno ?]].
  - left. eauto.
  - right. split; [|done]. intros t tl [_ ?]. by eapply Hno.
Qed.

(** Every call returns, and its verdict is [token_at]. *)
Lemma scan_cases fuel p l valid :
  (length (rest l) < fuel)%nat → Z.of_nat (length (rest l)) < 2 ^ 32 →
  (∃ t k, token_at valid (rest l) t (drop k (rest l))
     ∧ scan fuel p l valid = Ret (true, emit t (mark_end (advs k l))))
  ∨ (∀ t tl, ¬ token_at valid (rest l) t tl)
    ∧ ∃ l', scan fuel p l valid = Ret (false, l')
      ∧ result_symbol l' = result_symbol l.
Proof.
  intros Hf Hb. unfold tree_sitter_pascal_external_scanner_scan, token_at.
  rewrite (lookahead_rest l).
  destruct (valid LITERAL_STRING_MULTILINE && (peek (rest l) =? _)).
  { pose proof (scan_multiline_string_spec fuel l Hf Hb) as Hm.
    destruct (multiline_string (rest l)) as [tl|].
    - left. destruct Hm as (k & -> & <-). by exists LITERAL_STRING_MULTILINE, k.
    - right. destruct Hm as (k & ->). split; [naive_solver|].
      eexists. split; [done|]. apply result_advs. }
  destruct (has_word_symbol valid); simpl andb; cbn iota zeta; cycle 1.
  { destruct (scan_after_word_spec fuel l valid Hf)
      as [(t & k & ? & ? & ?)|[Hno [k Hk]]].
    - left. by exists t, k.
    - right. split; [done|]. eexists. split; [done|]. apply result_advs. }
  rewrite scan_word_token_spec by done. rewrite res_bind_ret.
  unfold scan_word_spec. cbn zeta.
  set (escaped := peek (rest l) =? _).
  set (skip := if escaped then 1%nat else 0%nat).
  replace (if escaped then drop 1 (rest l) else rest l)
    with (drop skip (rest l)) by (unfold skip; by destruct escaped).
  set (cs' := drop skip (rest l)).
  destruct (is_identifier_start (peek cs')).
  { destruct (classify_word valid escaped (word_of cs')) as [t|].
    - left. eexists t, _. split; [|done].
      split; [done|]. unfold cs'. by rewrite drop_drop.
    - right. split; [naive_solver|]. eexists. split; [done|].
      by rewrite result_mark_end, result_advs. }
  destruct (scan_after_word_spec fuel (advs skip l) valid)
    as [Hyes|Hno]; rewrite ?rest_advs in *.
  { rewrite length_drop. lia. }
  - left. destruct Hyes as (t & k & ? & ? & ->). exists t, (skip + k)%nat.
    rewrite <- advs_add, <- drop_drop. by fold cs'.
  - right. destruct Hno as [Hno [k ->]]. fold cs' in Hno. split; [done|].
    eexists. split; [done|]. by rewrite !result_advs.
Qed.
End summary.

(** ** Laws of [token_at] *)

Lemma classify_word_valid valid escaped w t :
  classify_word valid escaped w = Some t → valid t = true.
Proof.
  unfold classify_word.
  intros Hc. repeat case_match; simplify_eq; done.
Qed.

Lemma token_at_valid valid cs t tl : token_at valid cs t tl → valid t = true.
Proof.
  unfold token_at. destruct (valid LITERAL_STRING_MULTILINE) eqn:E; simpl.
  - destruct (peek cs =? _); [by intros [-> _]|]. case_match.
    + intros [Hc _]. by eapply classify_word_valid.
    + intros [_ Hf]. by eapply fragment_token_valid.
  - case_match.
    + intros [Hc _]. by eapply classify_word_valid.
    + intros [_ Hf]. by eapply fragment_token_valid.
Qed.

Lemma token_at_deterministic valid cs t1 tl1 t2 tl2 :
  token_at valid cs t1 tl1 → token_at valid cs t2 tl2 → t1 = t2 ∧ tl1 = tl2.
Proof.
  unfold token_at. cbn zeta. intros Hs1 Hs2.
  destruct (valid LITERAL_STRING_MULTILINE && _).
  { destruct Hs1, Hs2. split; congruence. }
  destruct (has_word_symbol valid && is_identifier_start _).
  { destruct Hs1, Hs2. split; congruence. }
  destruct Hs1, Hs2. by eapply fragment_token_deterministic.
Qed.

Lemma find_some_elem {A} (p : A → bool) (xs : list A) (x : A) :
  List.find p xs = Some x → x ∈ xs ∧ p x = true.
Proof. intros [Hx%list_elem_of_In Hp]%find_some. done. Qed.

Lemma multiline_string_shorter cs tl :
  multiline_string cs = Some tl → (length tl < length cs)%nat.
Proof.
  unfold multiline_string. case_match; [|done].
  intros (s & [Hs%line_starts_length _]%find_some_elem & ->)%fmap_Some.
  unfold after_delimiter. rewrite !length_drop in *. lia.
Qed.

Lemma fragment_open_bounds cs n :
  fragment_open cs = Some n → (0 < n ≤ length cs)%nat.
Proof.
  unfold fragment_open. destruct (decide (peek cs = 0)) as [Hz|Hz].
  - unfold next_item. rewrite Hz. by repeat case_match.
  - repeat case_match; intros; simplify_eq. by eapply next_item_bounds.
Qed.

Lemma runs_shorter st cs its st' cs' :
  runs st cs its st' cs' → (length cs' ≤ length cs)%nat.
Proof.
  induction 1 as [|st cs it n its st' cs' Hd Hp Hit Hr IH]; [done|].
  rewrite length_drop in IH. lia.
Qed.

Lemma fragment_token_shorter valid cs t tl :
  fragment_token valid cs t tl → (length tl < length cs)%nat.
Proof.
  intros (n & its & st & cs' & Hn%fragment_open_bounds & Hr%runs_shorter & _ & _ & Ht).
  rewrite length_drop in Hr.
  case_match; [destruct Ht as [_ ->]; lia|].
  destruct Ht as (_ & _ & ->). rewrite length_drop. lia.
Qed.

(** An emitted token has at least one character. *)
Lemma token_at_shorter valid cs t tl :
  token_at valid cs t tl → (length tl < length cs)%nat.
Proof.
  unfold token_at. cbn zeta.
  set (cs' := if has_word_symbol valid && (peek cs =? _) then drop 1 cs else cs).
  assert (length cs' ≤ length cs)%nat
    by (unfold cs'; case_match; rewrite ?length_drop; lia).
  case_match; [by intros [_ ?%multiline_string_shorter]|].
  destruct (has_word_symbol valid && is_identifier_start (peek cs')) eqn:Hw.
  - intros [_ ->]. apply andb_true_iff in Hw as [_ Hw].
    assert (is_identifier_continue (peek cs') = true) as Hc
      by (unfold is_identifier_continue; by rewrite Hw).
    pose proof (span_len_pos _ _ eq_refl Hc).
    pose proof (span_len_le is_identifier_continue cs').
    rewrite length_drop. lia.
  - intros [_ ?%fragment_token_shorter]. lia.
Qed.

(** ** Emission and rejection *)

Section verdict.
Context `{TSLexerOk L}.

(** The call emits [t] and ends it where [tl] starts. *)
Definition emits (fuel : nat) (p : payload) (l : L) (valid : symbols)
    (t : TokenType) (tl : list Z) : Prop :=
  ∃ l', scan fuel p l valid = Ret (true, l')
    ∧ result_symbol l' = Z.of_nat (token_index t) ∧ token_end l' = tl.

(** The call returns [false]. *)
Definition rejects (fuel : nat) (p : payload) (l : L) (valid : symbols) : Prop :=
  ∃ l', scan fuel p l valid = Ret (false, l').

Lemma emits_token_at fuel p l valid t tl :
  (length (rest l) < fuel)%nat → Z.of_nat (length (rest l)) < 2 ^ 32 →
  token_at valid (rest l) t tl → emits fuel p l valid t tl.
Proof.
  intros Hf Hb Ht.
  destruct (scan_cases fuel p l valid Hf Hb) as [(t' & k & Ht' & Hs)|(Hno & _)];
    [|by destruct (Hno t tl)].
  destruct (token_at_deterministic _ _ _ _ _ _ Ht Ht') as [-> ->].
  eexists. split; [done|]. unfold emit.
  by rewrite result_set_result, token_end_set_result, token_end_mark_end, rest_advs.
Qed.

Lemma emits_inv fuel p l valid t tl :
  (length (rest l) < fuel)%nat → Z.of_nat (length (rest l)) < 2 ^ 32 →
  emits fuel p l valid t tl → token_at valid (rest l) t tl.
Proof.
  intros Hf Hb (l' & Hs & Hr & He).
  destruct (scan_cases fuel p l valid Hf Hb) as [(t' & k & Ht' & Hs')|(_ & ? & Hs' & _)];
    rewrite Hs' in Hs; simplify_eq.
  revert Hr Ht'. unfold emit.
  rewrite result_set_result, token_end_set_result, token_end_mark_end, rest_advs.
  by intros <-%(inj Z.of_nat)%(inj token_index).
Qed.

Lemma rejects_no_token fuel p l valid :
  (length (rest l) < fuel)%nat → Z.of_nat (length (rest l)) < 2 ^ 32 →
  (∀ t tl, ¬ token_at valid (rest l) t tl) → rejects fuel p l valid.
Proof.
  intros Hf Hb Hno.
  destruct (scan_cases fuel p l valid Hf Hb) as [(t & k & Ht & _)|(_ & l' & Hs & _)].
  - by destruct (Hno _ _ Ht).
  - by exists l'.
Qed.
End verdict.

(** ** Words at the head of the input *)

(** [is_word txt tl]: [txt] is a whole identifier-like word before [tl]. *)
Definition is_word (txt tl : list Z) : Prop :=
  is_identifier_start (peek txt) = true
  ∧ Forall (λ c, is_identifier_continue c = true) txt
  ∧ is_identifier_continue (peek tl) = false.

Lemma is_word_span txt tl :
  is_word txt tl → span_len is_identifier_continue (txt ++ tl) = length txt.
Proof. intros (_ & Hc & Hs). apply span_len_app; [done|by left]. Qed.

Lemma is_word_of txt tl : is_word txt tl → word_of (txt ++ tl) = tolower <$> txt.
Proof. intros Hw. unfold word_of. by rewrite is_word_span, take_app_length. Qed.

Lemma is_word_peek txt tl : is_word txt tl → peek (txt ++ tl) = peek txt.
Proof. intros (Hs & _). by destruct txt. Qed.

Lemma has_word_symbol_valid valid t :
  valid t = true → t = IDENTIFIER ∨ t ∈ all_words.*2 → has_word_symbol valid = true.
Proof.
  intros Hv [->|Ht]; unfold has_word_symbol; [by rewrite Hv|].
  unfold all_words in Ht. rewrite fmap_app, elem_of_app in Ht.
  rewrite <- !list_fmap_compose in Ht. apply orb_true_iff.
  destruct Ht as [(x & -> & Hx)%list_elem_of_fmap|(x & -> & Hx)%list_elem_of_fmap].
  - left. apply orb_true_iff. right. apply existsb_exists. exists x.
    split; [by apply list_elem_of_In|done].
  - right. apply existsb_exists. exists x. split; [by apply list_elem_of_In|done].
Qed.

(** The verdict on an unescaped word, whatever follows it. *)
Lemma token_at_word valid txt tl t tl' :
  is_word txt tl → has_word_symbol valid = true →
  token_at valid (txt ++ tl) t tl'
  ↔ classify_word valid false (tolower <$> txt) = Some t ∧ tl' = tl.
Proof.
  intros Hw Hh. pose proof Hw as (Hs & _). unfold token_at.
  rewrite Hh. cbn zeta. rewrite !(is_word_peek _ _ Hw).
  assert ((peek txt =? c! "'") = false) as -> by char_lia.
  assert ((peek txt =? c! "&") = false) as -> by char_lia.
  rewrite andb_false_r. simpl andb. cbn iota.
  rewrite (is_word_peek _ _ Hw), Hs, is_word_of, is_word_span by done.
  by rewrite drop_app_length.
Qed.

(** The verdict on a word escaped with an ampersand. *)
Lemma token_at_escaped valid txt tl t tl' :
  is_word txt tl → has_word_symbol valid = true →
  token_at valid (c! "&" :: txt ++ tl) t tl'
  ↔ classify_word valid true (tolower <$> txt) = Some t ∧ tl' = tl.
Proof.
  intros Hw Hh. pose proof Hw as (Hs & _). unfold token_at.
  rewrite Hh. simpl. rewrite andb_false_r.
  rewrite drop_0, (is_word_peek _ _ Hw), Hs, is_word_of, is_word_span by done.
  by rewrite drop_app_length.
Qed.

(** With no word token valid, a word is not a token at all. *)
Lemma token_at_word_invalid valid txt tl t tl' :
  is_word txt tl → has_word_symbol valid = false →
  ¬ token_at valid (txt ++ tl) t tl'.
Proof.
  intros Hw Hh. pose proof Hw as (Hs & _). unfold token_at.
  rewrite Hh. cbn zeta. rewrite !(is_word_peek _ _ Hw).
  assert ((peek txt =? c! "'") = false) as -> by char_lia.
  rewrite andb_false_r. simpl andb. cbn iota.
  intros [_ (n & its & st & cs' & Ho & _)]. revert Ho.
  unfold fragment_open, next_item. rewrite (is_word_peek _ _ Hw).
  assert ((peek txt =? c! "{") = false) as -> by char_lia.
  assert ((peek txt =? c! "(") = false) as -> by char_lia.
  by repeat case_match.
Qed.

(** Any spelling of a table word is a word. *)
Lemma table_word_is_word w t txt tl :
  (w, t) ∈ all_words → tolower <$> txt = w →
  is_identifier_continue (peek tl) = false → is_word txt tl.
Proof.
  intros [Hl Hw]%all_words_chars <- Htl. rewrite length_fmap in Hl.
  apply Forall_fmap in Hw.
  assert (∀ c, is_table_char (tolower c) = true → is_identifier_start c = true) as Hi.
  { intros c. rewrite <- (is_identifier_start_tolower c).
    unfold is_table_char, is_identifier_start, is_ascii_letter. lia. }
  split; [|split; [|done]].
  - destruct Hw; simpl in *; [lia|auto].
  - eapply Forall_impl; [done|]. simpl. intros c Hc%Hi.
    unfold is_identifier_continue. by rewrite Hc.
Qed.

Lemma contextual_in_all_words x :
  x ∈ CONTEXTUAL_WORDS → (codes (text x), token x) ∈ all_words.
Proof.
  intros Hx. apply elem_of_app. left.
  by apply (list_elem_of_fmap_2 (λ w, (codes (text w), token w))).
Qed.

Lemma reserved_in_all_words x :
  x ∈ DCC_RESERVED_WORDS → (codes (rtext x), rtoken x) ∈ all_words.
Proof.
  intros Hx. apply elem_of_app. right.
  by apply (list_elem_of_fmap_2 (λ w, (codes (rtext w), rtoken w))).
Qed.

Lemma all_words_inv w t :
  (w, t) ∈ all_words →
  (∃ x, x ∈ CONTEXTUAL_WORDS ∧ w = codes (text x) ∧ t = token x)
  ∨ (∃ x, x ∈ DCC_RESERVED_WORDS ∧ w = codes (rtext x) ∧ t = rtoken x).
Proof.
  unfold all_words. rewrite elem_of_app, !list_elem_of_fmap. naive_solver.
Qed.
