(* ===== verification/ScannerTheorems.v ===== *)
(** * Correctness of the scanner's entry point

    The properties of [tree_sitter_pascal_external_scanner_scan] as the
    runtime and the grammar see it.  Each theorem is stated for every lexer
    that satisfies the laws of [TSLexerOk] and is instantiated on a concrete
    text by the witness that follows it. *)

From S2P Require Import Prelude.
From S2P Require Import Lexer.
From S2P Require Import Chars.
From S2P Require Import Tokens.
From S2P Require Import Words.
From S2P Require Import Multiline.
From S2P Require Import Fragment.
From S2P Require Import FragmentSpec.
From S2P Require Import Scanner.

Section entry.
Context `{TSLexerOk L}.

(** C1. A call of the scanner always returns (it neither runs forever nor
    writes outside its buffers) and it emits a token exactly when the
    specification [token_at] says the input starts with one, with the same
    token type and the same end. *)
Theorem scan_refines_spec fuel p (l : L) valid :
  (length (rest l) < fuel)%nat → Z.of_nat (length (rest l)) < 2 ^ 32 →
  ∃ b l', tree_sitter_pascal_external_scanner_scan fuel p l valid = Ret (b, l')
    ∧ ∀ t tl, token_at valid (rest l) t tl
        ↔ b = true ∧ result_symbol l' = Z.of_nat (token_index t)
          ∧ token_end l' = tl.
Proof.
  intros Hf Hb.
  destruct (scan_cases fuel p l valid Hf Hb) as [(t & k & Ht & ->)|(Hno & l' & -> & _)].
  - eexists _, _. split; [done|]. intros t' tl'. unfold emit.
    rewrite result_set_result, token_end_set_result, token_end_mark_end, rest_advs.
    split.
    + intros Ht'. destruct (token_at_deterministic _ _ _ _ _ _ Ht Ht') as [-> ->].
      done.
    + intros (_ & Hi%(inj Z.of_nat)%(inj token_index) & <-). by rewrite <- Hi.
  - eexists _, _. split; [done|]. naive_solver.
Qed.

(** C3. The scanner never emits a token the parser did not ask for. *)
Theorem scan_emits_valid_symbol fuel p (l : L) valid l' :
  (length (rest l) < fuel)%nat → Z.of_nat (length (rest l)) < 2 ^ 32 →
  tree_sitter_pascal_external_scanner_scan fuel p l valid = Ret (true, l') →
  ∃ t, valid t = true ∧ result_symbol l' = Z.of_nat (token_index t).
Proof.
  intros Hf Hb Hs.
  destruct (scan_cases fuel p l valid Hf Hb) as [(t & k & Ht & Hs')|(_ & ? & Hs' & _)];
    rewrite Hs' in Hs; simplify_eq.
  exists t. split; [by eapply token_at_valid|]. apply result_set_result.
Qed.

(** C4. Every emitted token is a non-empty prefix of the remaining input, so
    a parser that restarts after it makes progress. *)
Theorem scan_progress fuel p (l : L) valid l' :
  (length (rest l) < fuel)%nat → Z.of_nat (length (rest l)) < 2 ^ 32 →
  tree_sitter_pascal_external_scanner_scan fuel p l valid = Ret (true, l') →
  ∃ tok, tok ≠ [] ∧ rest l = tok ++ token_end l'.
Proof.
  intros Hf Hb Hs.
  destruct (scan_cases fuel p l valid Hf Hb) as [(t & k & Ht & Hs')|(_ & ? & Hs' & _)];
    rewrite Hs' in Hs; simplify_eq.
  unfold emit. rewrite token_end_set_result, token_end_mark_end, rest_advs.
  exists (take k (rest l)). rewrite take_drop. split; [|done].
  apply token_at_shorter in Ht. intros Hn%(f_equal length).
  rewrite length_take in Hn. rewrite length_drop in Ht. simpl in Hn. lia.
Qed.
End entry.

Lemma scan_refines_spec_witness :
  ∃ b l', tree_sitter_pascal_external_scanner_scan 10 None (str_lexer "begin") (λ _, true) = Ret (b, l')
    ∧ ∀ t tl, token_at (λ _, true) (rest (str_lexer "begin")) t tl
        ↔ b = true ∧ result_symbol l' = Z.of_nat (token_index t)
          ∧ token_end l' = tl.
Proof.
  refine (scan_refines_spec 10 None (str_lexer "begin") (λ _, true) _ _); concrete.
Defined.

Lemma scan_emits_valid_symbol_witness :
  ∃ t, (λ t, bool_decide (t = KBEGIN)) t = true
    ∧ Z.of_nat (token_index KBEGIN) = Z.of_nat (token_index t).
Proof.
  refine (scan_emits_valid_symbol (L:=StrLexer) 20 None (str_lexer "begin x")
    (λ t, bool_decide (t = KBEGIN))
    (MkStrLexer (codes " x") (codes " x") (Z.of_nat (token_index KBEGIN))) _ _ _);
    concrete.
Defined.

Lemma scan_progress_witness :
  ∃ tok, tok ≠ [] ∧ codes "begin x" = tok ++ codes " x".
Proof.
  refine (scan_progress (L:=StrLexer) 20 None (str_lexer "begin x") (λ _, true)
    (MkStrLexer (codes " x") (codes " x") (Z.of_nat (token_index KBEGIN))) _ _ _);
    concrete.
Defined.
