(* ===== verification/WordTheorems.v ===== *)
(** * How the scanner classifies words

    Keywords, reserved words, contextual words, escaped words and over-long
    words, as the entry point of the scanner treats them. *)

From S2P Require Import Prelude.
From S2P Require Import Lexer.
From S2P Require Import Chars.
From S2P Require Import Tokens.
From S2P Require Import Words.
From S2P Require Import Multiline.
From S2P Require Import Fragment.
From S2P Require Import FragmentSpec.
From S2P Require Import Scanner.

Section words.
Context `{TSLexerOk L}.

(** C5. Every word of the two keyword tables, in any mixture of upper and
    lower case, is scanned as its own token when the parser accepts that
    token, and the token ends with the word. *)
Theorem keyword_scanned fuel p (l : L) valid w t txt tl :
  (length (rest l) < fuel)%nat → Z.of_nat (length (rest l)) < 2 ^ 32 →
  rest l = txt ++ tl → is_identifier_continue (peek tl) = false →
  (w, t) ∈ all_words → tolower <$> txt = w → valid t = true →
  emits fuel p l valid t tl.
Proof.
  intros Hf Hb Hr Htl Hw Htxt Hv. apply emits_token_at; [done..|]. rewrite Hr.
  apply token_at_word.
  - by eapply table_word_is_word.
  - eapply has_word_symbol_valid; [done|]. right.
    by apply (list_elem_of_fmap_2 snd) in Hw.
  - split; [|done]. rewrite Htxt. pose proof (all_words_chars _ _ Hw) as [Hl _].
    unfold classify_word. replace (31 <? length w)%nat with false by lia. simpl.
    apply all_words_inv in Hw as [(x & Hx & -> & ->)|(x & Hx & -> & ->)].
    + by rewrite contextual_token_elem, Hv.
    + rewrite reserved_token_elem, Hv by done.
      destruct (contextual_token _) eqn:Hc; [|done].
      apply contextual_not_reserved in Hc. by rewrite reserved_token_elem in Hc.
Qed.

(** C6. A reserved word is never an identifier: where its keyword is not
    acceptable the scanner refuses the input, even if identifiers are. *)
Theorem reserved_word_never_identifier fuel p (l : L) valid x txt tl :
  (length (rest l) < fuel)%nat → Z.of_nat (length (rest l)) < 2 ^ 32 →
  rest l = txt ++ tl → is_identifier_continue (peek tl) = false →
  x ∈ DCC_RESERVED_WORDS → tolower <$> txt = codes (rtext x) →
  valid (rtoken x) = false →
  rejects fuel p l valid.
Proof.
  intros Hf Hb Hr Htl Hx Htxt Hv. apply rejects_no_token; [done..|].
  pose proof (reserved_in_all_words _ Hx) as Hw.
  pose proof (table_word_is_word _ _ _ _ Hw Htxt Htl) as Hword.
  intros t tl'. rewrite Hr. destruct (has_word_symbol valid) eqn:Hh.
  2:{ by apply token_at_word_invalid. }
  rewrite token_at_word by done. rewrite Htxt.
  pose proof (all_words_chars _ _ Hw) as [Hl _].
  unfold classify_word. replace (31 <? length _)%nat with false by lia. simpl.
  rewrite reserved_token_elem, Hv by done.
  destruct (contextual_token _) eqn:Hc; [|naive_solver].
  apply contextual_not_reserved in Hc. by rewrite reserved_token_elem in Hc.
Qed.

(** C7. A contextual word whose keyword the parser does not accept here is
    an ordinary identifier. *)
Theorem contextual_word_falls_back fuel p (l : L) valid x txt tl :
  (length (rest l) < fuel)%nat → Z.of_nat (length (rest l)) < 2 ^ 32 →
  rest l = txt ++ tl → is_identifier_continue (peek tl) = false →
  x ∈ CONTEXTUAL_WORDS → tolower <$> txt = codes (text x) →
  valid (token x) = false → valid IDENTIFIER = true →
  emits fuel p l valid IDENTIFIER tl.
Proof.
  intros Hf Hb Hr Htl Hx Htxt Hv Hi. apply emits_token_at; [done..|]. rewrite Hr.
  pose proof (contextual_in_all_words _ Hx) as Hw.
  apply token_at_word.
  - by eapply table_word_is_word.
  - by eapply has_word_symbol_valid; [|left].
  - split; [|done]. rewrite Htxt. pose proof (all_words_chars _ _ Hw) as [Hl _].
    unfold classify_word. replace (31 <? length _)%nat with false by lia. simpl.
    by rewrite contextual_token_elem, Hv, Hi.
Qed.

(** C8. [&word] is an identifier whatever the word is, so the escape turns
    every reserved word into an identifier; the token spans the ampersand. *)
Theorem escaped_word_is_identifier fuel p (l : L) valid txt tl :
  (length (rest l) < fuel)%nat → Z.of_nat (length (rest l)) < 2 ^ 32 →
  rest l = c! "&" :: txt ++ tl → is_word txt tl →
  valid IDENTIFIER = true →
  emits fuel p l valid IDENTIFIER tl.
Proof.
  intros Hf Hb Hr Hw Hi. apply emits_token_at; [done..|]. rewrite Hr.
  apply token_at_escaped; [done|by eapply has_word_symbol_valid; [|left]|].
  split; [|done]. unfold classify_word. by rewrite Hi.
Qed.

(** C26. A word of more than 31 characters does not fit the buffer and is an
    identifier, even when its first 31 characters are a keyword. *)
Theorem long_word_is_identifier fuel p (l : L) valid txt tl :
  (length (rest l) < fuel)%nat → Z.of_nat (length (rest l)) < 2 ^ 32 →
  rest l = txt ++ tl → is_word txt tl → (31 < length txt)%nat →
  valid IDENTIFIER = true →
  emits fuel p l valid IDENTIFIER tl.
Proof.
  intros Hf Hb Hr Hw Hl Hi. apply emits_token_at; [done..|]. rewrite Hr.
  apply token_at_word; [done|by eapply has_word_symbol_valid; [|left]|].
  split; [|done]. unfold classify_word. rewrite length_fmap.
  replace (31 <? length txt)%nat with true by lia. by rewrite Hi.
Qed.
End words.

(** ** Witnesses *)

Lemma keyword_scanned_witness :
  emits 20 None (str_lexer "BeGin;") (λ _, true) KBEGIN (codes ";").
Proof.
  refine (keyword_scanned 20 None (str_lexer "BeGin;") (λ _, true)
    (codes "begin") KBEGIN (codes "BeGin") (codes ";") _ _ _ _ _ _ _);
    try concrete.
Defined.

Lemma reserved_word_never_identifier_witness :
  rejects 20 None (str_lexer "END;") (λ t, bool_decide (t = IDENTIFIER)).
Proof.
  refine (reserved_word_never_identifier 20 None (str_lexer "END;")
    (λ t, bool_decide (t = IDENTIFIER)) (MkReserved "end" KEND)
    (codes "END") (codes ";") _ _ _ _ _ _ _); try concrete.
  apply list_elem_of_In. do 15 right. left. done.
Defined.

Lemma contextual_word_falls_back_witness :
  emits 20 None (str_lexer "Name := 1") (λ t, bool_decide (t = IDENTIFIER))
    IDENTIFIER (codes " := 1").
Proof.
  refine (contextual_word_falls_back 20 None (str_lexer "Name := 1")
    (λ t, bool_decide (t = IDENTIFIER)) (MkContextual "name" KNAME)
    (codes "Name") (codes " := 1") _ _ _ _ _ _ _ _); try concrete.
  apply list_elem_of_In. do 45 right. left. done.
Defined.

Lemma escaped_word_is_identifier_witness :
  emits 20 None (str_lexer "&begin x") (λ _, true) IDENTIFIER (codes " x").
Proof.
  refine (escaped_word_is_identifier 20 None (str_lexer "&begin x") (λ _, true)
    (codes "begin") (codes " x") _ _ _ _ _); try concrete.
Defined.

Lemma long_word_is_identifier_witness :
  emits 60 None (str_lexer "abcdefghijklmnopqrstuvwxyz_0123456789 ") (λ _, true)
    IDENTIFIER (codes " ").
Proof.
  refine (long_word_is_identifier 60 None
    (str_lexer "abcdefghijklmnopqrstuvwxyz_0123456789 ") (λ _, true)
    (codes "abcdefghijklmnopqrstuvwxyz_0123456789") (codes " ") _ _ _ _ _ _);
    try concrete.
Defined.
