(* ===== verification/MultilineTheorems.v ===== *)
(** * Multiline strings: what is accepted and what is emitted

    The printer [multiline_text] builds a multiline string from its content
    lines; scanning the printed text gives back exactly that text as one
    token, and every text the scanner accepts has that shape. *)

From S2P Require Import Prelude.
From S2P Require Import Lexer.
From S2P Require Import Chars.
From S2P Require Import Tokens.
From S2P Require Import Words.
From S2P Require Import Multiline.
From S2P Require Import Fragment.
From S2P Require Import FragmentSpec.
From S2P Require Import Scanner.

(** Each line preceded by the line break that ends the line before it. *)
Fixpoint lines_text (lines : list (list Z)) : list Z :=
  match lines with
  | [] => []
  | ln :: lines' => LF :: ln ++ lines_text lines'
  end.

(** A multiline string with delimiter width [d]: blanks and an optional
    carriage return may end the opening line, [indent] precedes the closing
    delimiter. *)
Definition multiline_text (d : nat) (blanks cr : list Z)
    (lines : list (list Z)) (indent : list Z) : list Z :=
  replicate d (c! "'") ++ blanks ++ cr ++ lines_text lines
  ++ LF :: indent ++ replicate d (c! "'").

Lemma span_len_prefix p w cs :
  Forall (λ c, p c = true) w → span_len p (w ++ cs) = (length w + span_len p cs)%nat.
Proof. induction 1 as [|c w Hc _ IH]; simpl; [done|]. by rewrite Hc, IH. Qed.

Lemma span_len_lf p ln cs :
  p LF = false → span_len p (ln ++ LF :: cs) = span_len p (ln ++ [LF]).
Proof.
  intros Hp. induction ln as [|c ln IH]; simpl; [by rewrite Hp|].
  destruct (p c); by rewrite ?IH.
Qed.

Lemma span_len_lf_end p ln : p LF = false → span_len p (ln ++ [LF]) = span_len p ln.
Proof.
  intros Hp. induction ln as [|c ln IH]; simpl; [by rewrite Hp|].
  destruct (p c); by rewrite ?IH.
Qed.

(** A line break bounds the search for the delimiter of a line. *)
Lemma leading_quotes_line ln cs : leading_quotes (ln ++ LF :: cs) = leading_quotes ln.
Proof.
  unfold leading_quotes, indentation.
  rewrite span_len_lf, span_len_lf_end by done.
  pose proof (span_len_le is_blank ln).
  rewrite drop_app_le by done.
  rewrite span_len_lf, span_len_lf_end; done.
Qed.

Lemma leading_quotes_close indent d tl :
  Forall (λ c, is_blank c = true) indent → is_quote (peek tl) = false →
  (0 < d)%nat →
  indentation (indent ++ replicate d (c! "'") ++ tl) = length indent
  ∧ leading_quotes (indent ++ replicate d (c! "'") ++ tl) = d.
Proof.
  intros Hi Ht Hd.
  assert (indentation (indent ++ replicate d (c! "'") ++ tl) = length indent) as Hind.
  { unfold indentation. rewrite span_len_app; [done..|]. left. destruct d; [lia|done]. }
  split; [done|]. unfold leading_quotes. rewrite Hind, drop_app_length.
  rewrite span_len_app; [apply length_replicate| |by left].
  by apply Forall_replicate.
Qed.

Lemma line_starts_app pre cs :
  LF ∉ pre → line_starts (pre ++ cs) = line_starts cs.
Proof.
  induction pre as [|c pre IH]; simpl; [done|].
  rewrite not_elem_of_cons. intros [Hc Hp]. destruct (Z.eqb_spec c LF); [done|auto].
Qed.

(** The search stops at the first line that carries the delimiter. *)
Lemma find_closing_line d lines close :
  Forall (λ ln, (LF ∉ ln) ∧ leading_quotes ln ≠ d) lines →
  leading_quotes close = d →
  List.find (λ s, leading_quotes s =? d)%nat
    (line_starts (lines_text lines ++ LF :: close)) = Some close.
Proof.
  intros Hl Hc.
  induction Hl as [|ln lines [Hlf Hne] Hl IH]; simpl.
  - by rewrite Hc, Nat.eqb_refl.
  - rewrite <- (assoc_L (++)).
    assert (∃ cs, lines_text lines ++ LF :: close = LF :: cs)
      as [cs Hcs] by (destruct lines; simpl; eauto).
    rewrite Hcs in IH |- *. rewrite leading_quotes_line.
    destruct (Nat.eqb_spec (leading_quotes ln) d); [done|].
    by rewrite line_starts_app.
Qed.

Lemma multiline_string_text d blanks cr lines indent tl :
  (3 ≤ d)%nat → Nat.odd d = true →
  Forall (λ c, is_blank c = true) blanks → cr = [] ∨ cr = [CR] →
  Forall (λ ln, (LF ∉ ln) ∧ leading_quotes ln ≠ d) lines →
  Forall (λ c, is_blank c = true) indent → is_quote (peek tl) = false →
  multiline_string (multiline_text d blanks cr lines indent ++ tl) = Some tl.
Proof.
  intros Hd Ho Hb Hcr Hl Hi Ht.
  set (close := indent ++ replicate d (c! "'") ++ tl).
  set (body := cr ++ lines_text lines ++ LF :: close).
  assert (multiline_text d blanks cr lines indent ++ tl
          = replicate d (c! "'") ++ blanks ++ body) as ->.
  { unfold multiline_text, body, close. rewrite <- !(assoc_L (++)). simpl.
    by rewrite <- !(assoc_L (++)). }
  assert ((peek body =? CR) || (peek body =? LF) = true) as Hpeek.
  { unfold body. destruct Hcr as [->| ->]; simpl; [|done].
    by destruct lines. }
  assert (span_len is_quote (replicate d (c! "'") ++ blanks ++ body) = d) as Hspan.
  { rewrite span_len_app; [apply length_replicate| |left].
    - by apply Forall_replicate.
    - destruct Hb as [|b blanks Hb1 Hb2]; simpl.
      + unfold is_quote. lia.
      + unfold is_quote, is_blank in *. lia. }
  unfold multiline_string. rewrite Hspan.
  rewrite (drop_app_length' _ _ d) by (by rewrite length_replicate).
  assert (indentation (blanks ++ body) = length blanks) as Hind.
  { unfold indentation. rewrite span_len_app; [done..|]. left.
    unfold is_blank. lia. }
  rewrite Hind, drop_app_length, Ho, Hpeek.
  replace (3 <=? d)%nat with true by lia. simpl.
  destruct (leading_quotes_close indent d tl Hi Ht) as [Hci Hcq]; [lia|].
  unfold body. rewrite line_starts_app; [|by destruct Hcr; subst; rewrite ?elem_of_cons, ?elem_of_nil; lia].
  rewrite (find_closing_line d lines close) by done. simpl. f_equal.
  unfold after_delimiter, close. rewrite Hci, Hcq.
  rewrite <- drop_drop, drop_app_length.
  rewrite (drop_app_length' _ _ d); [done|]. by rewrite length_replicate.
Qed.

Lemma line_starts_split s cs :
  s ∈ line_starts cs → ∃ pre, cs = pre ++ LF :: s.
Proof.
  induction cs as [|c cs IH]; simpl; [by intros ?%not_elem_of_nil|].
  destruct (Z.eqb_spec c LF) as [->|]; [intros [->|Hs]%elem_of_cons|intros Hs].
  - by exists [].
  - destruct (IH Hs) as [pre ->]. by exists (LF :: pre).
  - destruct (IH Hs) as [pre ->]. by exists (c :: pre).
Qed.

Lemma span_len_split p cs :
  cs = take (span_len p cs) cs ++ drop (span_len p cs) cs.
Proof. by rewrite take_drop. Qed.

Lemma take_quotes cs : take (span_len is_quote cs) cs = replicate (span_len is_quote cs) (c! "'").
Proof.
  induction cs as [|c cs IH]; simpl; [done|].
  destruct (is_quote c) eqn:E; simpl; [|done].
  unfold is_quote in E. rewrite IH. f_equal. lia.
Qed.

Section multiline.
Context `{TSLexerOk L}.

(** C9. Print and scan: a multiline string with any odd delimiter of at
    least three quotes, Unix or Windows line ends, any indentation of the
    closing delimiter and any content lines that do not themselves start
    with the delimiter is scanned as one token that ends right after the
    closing delimiter. *)
Theorem multiline_roundtrip fuel p (l : L) valid d blanks cr lines indent tl :
  (length (rest l) < fuel)%nat → Z.of_nat (length (rest l)) < 2 ^ 32 →
  valid LITERAL_STRING_MULTILINE = true →
  (3 ≤ d)%nat → Nat.odd d = true →
  Forall (λ c, is_blank c = true) blanks → cr = [] ∨ cr = [CR] →
  Forall (λ ln, (LF ∉ ln) ∧ leading_quotes ln ≠ d) lines →
  Forall (λ c, is_blank c = true) indent → is_quote (peek tl) = false →
  rest l = multiline_text d blanks cr lines indent ++ tl →
  emits fuel p l valid LITERAL_STRING_MULTILINE tl.
Proof.
  intros Hf Hb Hv Hd Ho Hbl Hcr Hl Hi Ht Hr. apply emits_token_at; [done..|].
  unfold token_at. rewrite Hv, Hr.
  assert (peek (multiline_text d blanks cr lines indent ++ tl) = c! "'") as ->
    by (unfold multiline_text; destruct d; [lia|done]).
  simpl. split; [done|]. by apply multiline_string_text.
Qed.

(** C27. Every multiline-string token starts with an odd run of at least
    three quotes that ends its line and stops after a run of exactly as
    many quotes that starts a later line, after blanks only. *)
Theorem multiline_shape fuel p (l : L) valid tl :
  (length (rest l) < fuel)%nat → Z.of_nat (length (rest l)) < 2 ^ 32 →
  emits fuel p l valid LITERAL_STRING_MULTILINE tl →
  ∃ d blanks mid indent,
    (3 ≤ d)%nat ∧ Nat.odd d = true
    ∧ Forall (λ c, is_blank c = true) blanks
    ∧ (peek (mid ++ [LF]) = CR ∨ peek (mid ++ [LF]) = LF)
    ∧ Forall (λ c, is_blank c = true) indent
    ∧ is_quote (peek tl) = false
    ∧ rest l = replicate d (c! "'") ++ blanks ++ mid
               ++ LF :: indent ++ replicate d (c! "'") ++ tl.
Proof.
  intros Hf Hb Ht%emits_inv; [|done..]. revert Ht. unfold token_at.
  case_match; cycle 1.
  { case_match.
    - intros [[?|?]%classify_word_kind _]; simpl in *; [done|lia].
    - intros [_ (n & its & st & cs' & _ & _ & _ & _ & Ht)].
      repeat case_match; naive_solver. }
  intros [_ Hm]. unfold multiline_string in Hm. case_match eqn:Hc; [|done].
  apply fmap_Some in Hm as (s & Hs%find_some_elem & ->).
  destruct Hs as [[mid Hmid]%line_starts_split Hq].
  set (d := span_len is_quote (rest l)) in *.
  set (rest1 := drop d (rest l)) in *.
  apply andb_true_iff in Hc as [[Hc1 Hc2]%andb_true_iff Hc3].
  apply orb_true_iff in Hc3.
  exists d, (take (indentation rest1) rest1), mid, (take (indentation s) s).
  rewrite Hmid in Hc3.
  assert (peek (mid ++ LF :: s) = peek (mid ++ [LF])) as Hp by (by destruct mid).
  rewrite Hp in Hc3.
  split_and!; [lia|done|apply span_len_take|lia|apply span_len_take| |].
  - unfold after_delimiter. rewrite <- drop_drop. by apply span_len_stop.
  - rewrite (span_len_split is_quote (rest l)) at 1. rewrite take_quotes. fold d rest1.
    f_equal. rewrite <- (take_drop (indentation rest1) rest1) at 1. rewrite Hmid.
    f_equal. f_equal. f_equal.
    rewrite <- (take_drop (indentation s) s) at 1. f_equal.
    unfold after_delimiter. rewrite <- drop_drop.
    rewrite <- (take_drop (leading_quotes s) (drop (indentation s) s)) at 1.
    f_equal. unfold leading_quotes at 1. rewrite take_quotes.
    fold (leading_quotes s). f_equal. lia.
Qed.
End multiline.

(** ** Witnesses *)

(** [''' <CR><LF> SELECT 'a'<CR><LF>  '''], with two content lines. *)
Definition sample_multiline : list Z :=
  multiline_text 3 [] [CR] [codes "SELECT 'a'"; codes "FROM t"] (codes "  ").

Lemma multiline_roundtrip_witness :
  emits 60 None (MkStrLexer (sample_multiline ++ codes ";") [] 0) (λ _, true)
    LITERAL_STRING_MULTILINE (codes ";").
Proof.
  refine (multiline_roundtrip 60 None
    (MkStrLexer (sample_multiline ++ codes ";") [] 0) (λ _, true)
    3 [] [CR] [codes "SELECT 'a'"; codes "FROM t"] (codes "  ") (codes ";")
    _ _ _ _ _ _ _ _ _ _ _); concrete.
Defined.

Lemma multiline_shape_witness :
  ∃ d blanks mid indent,
    (3 ≤ d)%nat ∧ Nat.odd d = true
    ∧ Forall (λ c, is_blank c = true) blanks
    ∧ (peek (mid ++ [LF]) = CR ∨ peek (mid ++ [LF]) = LF)
    ∧ Forall (λ c, is_blank c = true) indent
    ∧ is_quote (peek (codes ";")) = false
    ∧ sample_multiline ++ codes ";"
      = replicate d (c! "'") ++ blanks ++ mid
        ++ LF :: indent ++ replicate d (c! "'") ++ codes ";".
Proof.
  refine (multiline_shape 60 None
    (MkStrLexer (sample_multiline ++ codes ";") [] 0) (λ _, true) (codes ";") _ _ _).
  - concrete.
  - concrete.
  - eexists. split; [by vm_compute|]. by split.
Defined.
