(* ===== verification/FragmentTheorems.v ===== *)
(** * Fragments: what a fragment token contains

    [body_text] cuts a text into items, each with exactly its text, up to the
    directive at which the nesting depth returns to zero; with it the step
    relation of [FragmentSpec.v] becomes a statement about the text of a
    token: its directives are balanced, its line breaks lie inside
    directives, its type is decided by the top-level semicolons. *)

From S2P Require Import Prelude.
From S2P Require Import Lexer.
From S2P Require Import Chars.
From S2P Require Import Tokens.
From S2P Require Import Words.
From S2P Require Import Multiline.
From S2P Require Import Fragment.
From S2P Require Import FragmentSpec.
From S2P Require Import FragmentText.
From S2P Require Import Scanner.

(** ** Items *)

(** How an item changes the nesting depth. *)
Definition item_delta (it : item) : Z :=
  match it with
  | IDirective kw => if opens kw then 1 else if closes kw then -1 else 0
  | _ => 0
  end.

(** A semicolon at depth 1. *)
Fixpoint top_level_semi (d : Z) (its : list item) : bool :=
  match its with
  | [] => false
  | it :: its' =>
    match it with IChar c => (c =? c! ";") && (d =? 1) | _ => false end
    || top_level_semi (d + item_delta it) its'
  end.

(** An argument-less routine directive, such as [inline]. *)
Definition item_directive (it : item) : bool :=
  match it with
  | IWord w more => negb more && routine_word w
  | _ => false
  end.

(** Items that may stand beside routine directives. *)
Definition item_neutral (it : item) : bool :=
  match it with
  | IWord w more => negb more && routine_word w
  | IChar c => (c =? c! ";") || is_space_or_newline c
  | IDirective kw => negb (opens kw)
  | _ => false
  end.

(** A list of items that the grammar handles as routine directives. *)
Definition directives_body (its : list item) : bool :=
  existsb item_directive its && forallb item_neutral its.

(** ** The loop variables as functions of the items *)

Lemma apply_item_flags it st :
  saw_newline (apply_item it st) = saw_newline st || item_newline it
  ∧ saw_top_level_semi (apply_item it st)
    = saw_top_level_semi st
      || match it with IChar c => (c =? c! ";") && (depth st =? 1) | _ => false end
  ∧ saw_directive (apply_item it st) = saw_directive st || item_directive it
  ∧ directives_only (apply_item it st) = directives_only st && item_neutral it.
Proof.
  destruct st as [d nl semi dir only].
  destruct it as [w more| | |c| |t|kw]; simpl;
    rewrite ?orb_false_r, ?andb_false_r; try done.
  - destruct more, (routine_word w); simpl;
      by rewrite ?orb_false_r, ?andb_false_r, ?orb_true_r, ?andb_true_r.
  - unfold is_newline, is_space_or_newline.
    destruct (Z.eqb_spec c (c! ";")) as [->|]; simpl.
    + destruct (d =? 1); simpl; by rewrite ?orb_false_r, ?andb_true_r, ?orb_true_r.
    + destruct (c =? 32), (c =? 9), (c =? 13), (c =? 10); simpl;
        by rewrite ?orb_false_r, ?andb_false_r, ?orb_true_r, ?andb_true_r.
  - destruct (opens kw), (closes kw); simpl;
      by rewrite ?orb_false_r, ?andb_false_r, ?orb_true_r, ?andb_true_r.
Qed.

Lemma opens_not_closes kw : opens kw = true → closes kw = false.
Proof.
  unfold opens, closes. rewrite bool_decide_eq_true, bool_decide_eq_false.
  rewrite !elem_of_cons, !elem_of_nil. intros [->|[->|[->|[]]]] [?|[?|[]]]; done.
Qed.

Lemma apply_item_depth it st :
  0 < depth st → depth st + 1 < 2 ^ 32 →
  depth (apply_item it st) = depth st + item_delta it.
Proof.
  intros H0 H1. destruct st as [d nl semi dir only]; simpl in *.
  destruct it as [w more| | |c| |t|kw]; simpl; try (repeat case_match; simpl; lia).
  destruct (opens kw); simpl; [apply wrap32_small; lia|].
  destruct (closes kw); simpl; [apply wrap32_small; lia|lia].
Qed.

Lemma item_delta_le it : -1 ≤ item_delta it ≤ 1.
Proof. destruct it; simpl; repeat case_match; lia. Qed.

Lemma runs_flags st cs its st' cs' :
  0 ≤ depth st → depth st + Z.of_nat (length cs) < 2 ^ 32 →
  runs st cs its st' cs' →
  saw_newline st' = saw_newline st || existsb item_newline its
  ∧ saw_top_level_semi st' = saw_top_level_semi st || top_level_semi (depth st) its
  ∧ saw_directive st' = saw_directive st || existsb item_directive its
  ∧ directives_only st' = directives_only st && forallb item_neutral its.
Proof.
  intros H0 Hb Hr. induction Hr as [st cs Hd|st cs it n its st' cs' Hd Hp Hit Hr IH].
  - simpl. by rewrite !orb_false_r, andb_true_r.
  - pose proof (next_item_bounds _ _ _ _ Hp Hit) as Hn.
    pose proof (item_delta_le it) as Hle.
    assert (depth st + 1 < 2 ^ 32) as Hb1 by (clear -Hb Hn; lia).
    pose proof (apply_item_depth it st Hd Hb1) as Hdep.
    assert (0 ≤ depth st + item_delta it) as H0' by (clear -Hd Hle; lia).
    assert (depth st + item_delta it + Z.of_nat (length cs - n) < 2 ^ 32) as Hb'
      by (clear -Hb Hn Hle; lia).
    destruct (apply_item_flags it st) as (E1 & E2 & E3 & E4).
    rewrite Hdep, E1, E2, E3, E4, length_drop in IH.
    destruct (IH H0' Hb') as (I2 & I3 & I4 & I5).
    simpl. rewrite I2, I3, I4, I5.
    by rewrite !orb_assoc, andb_assoc.
Qed.

(** ** The text of a run *)

(** [body_text d its cs tl]: from depth [d] on, the text [cs] is cut into the
    items [its], each beside its text, and the depth reaches zero after the
    last of them and not before, where [tl] is left. *)
Inductive body_text : Z → list (item * list Z) → list Z → list Z → Prop :=
  | body_end tl : body_text 0 [] tl tl
  | body_item d it txt its cs tl :
    0 < d → item_text (d =? 1) it txt cs → body_text (d + item_delta it) its cs tl →
    body_text d ((it, txt) :: its) (txt ++ cs) tl.

Lemma runs_body st cs its st' cs' :
  0 ≤ depth st → depth st + Z.of_nat (length cs) < 2 ^ 32 →
  runs st cs its st' cs' → ∃ txts, body_text (depth st) (zip its txts) cs cs'
    ∧ length txts = length its.
Proof.
  intros H0 Hb Hr. induction Hr as [st cs Hd|st cs it n its st' cs' Hd Hp Hit Hr IH].
  - exists []. replace (depth st) with 0 by lia. split; [constructor|done].
  - pose proof (next_item_bounds _ _ _ _ Hp Hit) as Hn.
    pose proof (item_delta_le it) as Hle.
    pose proof (apply_item_depth it st Hd) as Hdep.
    rewrite length_drop in IH. destruct IH as (txts & Ht & Hl); [lia..|].
    rewrite Hdep in Ht by lia. exists (take n cs :: txts). split; [|simpl; by rewrite Hl].
    simpl. rewrite <- (take_drop n cs) at 2. constructor; [done| |done].
    by apply next_item_text.
Qed.

Lemma body_runs st pieces cs cs' :
  depth st + Z.of_nat (length cs) < 2 ^ 32 →
  body_text (depth st) pieces cs cs' → ∃ st', runs st cs pieces.*1 st' cs'.
Proof.
  intros Hb Hr. remember (depth st) as d eqn:Ed. revert st Ed.
  induction Hr as [tl|d it txt its cs tl Hd Hit Hr IH]; intros st Ed.
  - exists st. constructor. lia.
  - subst d. pose proof (item_text_next _ _ _ _ Hit) as [Hn Hp].
    pose proof (next_item_bounds _ _ _ _ Hp Hn) as Hl.
    rewrite length_app in Hb, Hl. pose proof (item_delta_le it) as Hle.
    destruct (IH ltac:(lia) (apply_item it st)) as [st' Hr'].
    { rewrite apply_item_depth; lia. }
    exists st'. simpl. apply (runs_step _ _ _ (length txt)); [done|done|done|].
    by rewrite drop_app_length.
Qed.

(** ** The contents of a fragment token *)

(** The shape of a fragment: an opening directive, the items of the body up
    to the matching [{$endif}], and the identifier chain absorbed after it. *)
Record fragment_contents (valid : symbols) (cs : list Z) (t : TokenType)
    (tl : list Z) (kw open body : list Z) (its : list (item * list Z))
    (chain : list Z) : Prop := {
  fc_text : cs = open ++ body;
  fc_open : item_text false (IDirective kw) open body;
  fc_opens : opens kw = true;
  fc_body : body_text 1 its body (chain ++ tl);
  fc_newline : existsb item_newline its.*1 = false;
  fc_directives : directives_body its.*1 = false;
  fc_chain : Forall (λ c, in_chain c = true) chain;
  fc_token :
    if top_level_semi 1 its.*1 && valid PP_FRAGMENT_STMT
    then t = PP_FRAGMENT_STMT ∧ chain = []
    else valid PP_FRAGMENT_EXPR = true ∧ t = PP_FRAGMENT_EXPR ∧ in_chain (peek tl) = false;
}.

(** An opening directive and its text. *)
Lemma fragment_open_text cs n :
  fragment_open cs = Some n
  ↔ ∃ kw, opens kw = true ∧ item_text false (IDirective kw) (take n cs) (drop n cs)
      ∧ (n ≤ length cs)%nat.
Proof.
  unfold fragment_open. split.
  - destruct (next_item false cs) as [[[] m]|] eqn:Hni; try done.
    destruct (opens kw) eqn:Hk; [|done]. intros [= ->]. exists kw.
    assert (peek cs ≠ 0) as Hz by (intros Hz; unfold next_item in Hni; by rewrite Hz in Hni).
    pose proof (next_item_bounds _ _ _ _ Hz Hni).
    split_and!; [done|by apply next_item_text|lia].
  - intros (kw & Hk & Ht & Hl). apply item_text_next in Ht as [Hn _].
    rewrite take_drop, length_take_le in Hn by done. by rewrite Hn, Hk.
Qed.

Lemma fragment_token_contents valid cs t tl :
  Z.of_nat (length cs) < 2 ^ 32 → fragment_token valid cs t tl →
  ∃ kw open body its chain, fragment_contents valid cs t tl kw open body its chain.
Proof.
  intros Hb (n & its & st & cs' & Ho & Hr & Hnl & Hd & Ht).
  pose proof (fragment_open_bounds _ _ Ho) as Hn.
  assert (depth initial_frag + Z.of_nat (length (drop n cs)) < 2 ^ 32) as Hb'
    by (simpl; rewrite length_drop; lia).
  destruct (runs_flags initial_frag (drop n cs) its st cs') as (F2 & F3 & F4 & F5); [done..|].
  assert (0 ≤ depth initial_frag) as H0 by done.
  destruct (runs_body _ _ _ _ _ H0 Hb' Hr) as (txts & Htx & Hl).
  assert ((zip its txts).*1 = its) as Hz by (apply fst_zip; lia).
  apply fragment_open_text in Ho as (kw & Hk & Hop & _).
  cbn in F2, F3, F4, F5. rewrite Hnl in F2. rewrite F3 in Ht. rewrite F4, F5 in Hd.
  exists kw, (take n cs), (drop n cs), (zip its txts).
  destruct (top_level_semi 1 its && valid PP_FRAGMENT_STMT) eqn:Hs.
  - destruct Ht as [-> ->]. exists [].
    split; rewrite ?Hz, ?Hs; [by rewrite take_drop|done|done|done|done|done|constructor|done].
  - destruct Ht as (Hv & -> & ->). exists (take (span_len in_chain cs') cs').
    split; rewrite ?Hz, ?Hs, ?take_drop; [done..|apply span_len_take|].
    split_and!; [done..|by apply span_len_stop].
Qed.

Lemma fragment_contents_token valid cs t tl kw open body its chain :
  Z.of_nat (length cs) < 2 ^ 32 →
  fragment_contents valid cs t tl kw open body its chain → fragment_token valid cs t tl.
Proof.
  intros Hb [-> Hop Hk Hbody Hnl Hdir Hch Ht]. rewrite length_app in Hb.
  pose proof (item_text_next _ _ _ _ Hop) as [Hn Hp].
  pose proof (next_item_bounds _ _ _ _ Hp Hn) as Hl.
  assert (depth initial_frag + Z.of_nat (length body) < 2 ^ 32) as Hb' by (simpl; lia).
  destruct (body_runs initial_frag its body (chain ++ tl) Hb' Hbody) as [st Hr].
  destruct (runs_flags initial_frag body its.*1 st (chain ++ tl)) as (F2 & F3 & F4 & F5);
    [done..|].
  exists (length open), its.*1, st, (chain ++ tl).
  rewrite drop_app_length, F2, F3, F4, F5. cbn. rewrite Hnl. split_and!; try done.
  - apply fragment_open_text. exists kw.
    rewrite take_app_length, drop_app_length, length_app. split_and!; [done|done|lia].
  - destruct (_ && _).
    + by destruct Ht as [-> ->].
    + destruct Ht as (Hv & -> & Hpk). split_and!; [done|done|].
      rewrite span_len_app by (done || by left). by rewrite drop_app_length.
Qed.

(** The text of every item of the body outside the directives is on one
    line. *)
Lemma body_text_lines d its cs tl :
  body_text d its cs tl → existsb item_newline its.*1 = false →
  Forall (λ '(it, txt), is_directive it = false → no_newline txt) its.
Proof.
  induction 1 as [|d it txt its cs tl Hd Hit Hr IH]; simpl; [constructor|].
  intros [Hn1 Hn2]%orb_false_iff. constructor; [|auto].
  intros Hdir. by eapply item_text_no_newline.
Qed.

(** At a brace or a parenthesis only fragments are scanned. *)
Lemma token_at_bracket valid cs t tl :
  peek cs = c! "{" ∨ peek cs = c! "(" →
  token_at valid cs t tl
  ↔ valid PP_FRAGMENT_EXPR || valid PP_FRAGMENT_STMT = true
    ∧ fragment_token valid cs t tl.
Proof.
  intros Hp. unfold token_at. cbn zeta.
  replace (peek cs =? c! "'") with false by lia.
  replace (peek cs =? c! "&") with false by lia.
  rewrite !andb_false_r.
  replace (is_identifier_start (peek cs)) with false by char_lia.
  by rewrite andb_false_r.
Qed.

(** ** Fragments built from plain text *)

(** Characters that open no string, comment or directive and end no line. *)
Definition plain (c : Z) : bool :=
  negb (c =? 0) && negb (is_newline c) && negb (c =? c! "{")
  && negb (c =? c! "(") && negb (c =? c! "'") && negb (c =? c! "/").

(** Characters that may belong to a list of routine directives. *)
Definition directive_char (c : Z) : bool :=
  is_ascii_letter c || (c =? c! ";") || is_space_or_newline c.

Lemma close_len_app arg cs :
  Forall (λ c, (c =? 0) || (c =? c! "}") = false) arg →
  close_len false (arg ++ c! "}" :: cs) = Some (S (length arg)).
Proof.
  induction 1 as [|c arg Hc _ IH]; simpl; [done|].
  apply orb_false_iff in Hc as [-> ->]. by rewrite IH.
Qed.

(** The name of a directive, in any case, followed by its argument. *)
Lemma directive_item d1 (name arg cs : list Z) :
  Forall (λ c, is_ascii_letter c = true) name → (length name ≤ 7)%nat →
  is_ascii_letter (peek (arg ++ [c! "}"])) = false →
  Forall (λ c, (c =? 0) || (c =? c! "}") = false) arg →
  next_item d1 (codes "{$" ++ name ++ arg ++ c! "}" :: cs)
  = Some (IDirective (tolower <$> name), (3 + length name + length arg)%nat).
Proof.
  intros Hn Hl Hp Ha. change (codes "{$") with [123; 36].
  unfold next_item. simpl.
  assert (span_len is_ascii_letter (name ++ arg ++ c! "}" :: cs) = length name) as Hs.
  { apply span_len_app; [done|]. left. by destruct arg. }
  assert (keyword_of 7 (name ++ arg ++ c! "}" :: cs) = tolower <$> name) as Hk.
  { unfold keyword_of. rewrite Hs, Nat.min_r, take_app_length by done. done. }
  rewrite drop_0, Hk, length_fmap, drop_app_length, close_len_app by done.
  simpl. do 2 f_equal. lia.
Qed.

Lemma fragment_open_directive name arg cs :
  opens (tolower <$> name) = true →
  is_ascii_letter (peek (arg ++ [c! "}"])) = false →
  Forall (λ c, (c =? 0) || (c =? c! "}") = false) arg →
  fragment_open (codes "{$" ++ name ++ arg ++ c! "}" :: cs)
  = Some (3 + length name + length arg)%nat.
Proof.
  intros Ho Hp Ha. unfold fragment_open.
  assert (length name ≤ 7 ∧ Forall (λ c, is_ascii_letter c = true) name)%nat as [Hl Hn].
  { unfold opens in Ho. apply bool_decide_eq_true in Ho.
    assert (Forall (λ k, (length k ≤ 7)%nat ∧ Forall (λ c, is_ascii_letter c = true) k)
      [codes "if"; codes "ifdef"; codes "ifndef"]) as Hall by concrete.
    apply (proj1 (Forall_forall _ _) Hall) in Ho as [H1 H2].
    rewrite length_fmap in H1. apply Forall_fmap in H2. split; [done|].
    eapply Forall_impl; [done|]. simpl. intros c. by rewrite is_ascii_letter_tolower. }
  by rewrite directive_item, Ho.
Qed.

(** The effect of plain text at depth 1 on the loop variables. *)
Record plain_effect (body : list Z) (st st' : frag_state) : Prop := {
  pe_depth : depth st' = 1;
  pe_newline : saw_newline st' = saw_newline st;
  pe_semi : saw_top_level_semi st'
            = saw_top_level_semi st || existsb (λ c, c =? c! ";") body;
  pe_only : directives_only st' = true →
            directives_only st = true ∧ Forall (λ c, directive_char c = true) body;
}.

Lemma existsb_semi_letters w :
  Forall (λ c, is_ascii_letter c = true) w → existsb (λ c, c =? c! ";") w = false.
Proof.
  induction 1 as [|c w Hc _ IH]; simpl; [done|].
  rewrite IH. replace (c =? c! ";") with false by char_lia. done.
Qed.

(** One step of the loop on plain text reads a word or one character. *)
Lemma next_item_plain c body cs :
  Forall (λ c, plain c = true) (c :: body) → is_ascii_letter (peek cs) = false →
  ∃ it n, next_item true (c :: body ++ cs) = Some (it, n)
    ∧ (0 < n ≤ length (c :: body))%nat
    ∧ ∀ st, depth st = 1 → plain_effect (take n (c :: body)) st (apply_item it st).
Proof.
  intros [Hc Hb]%Forall_cons Hcs. unfold next_item. simpl peek.
  unfold plain in Hc.
  replace (c =? c! "{") with false by lia. replace (c =? c! "(") with false by lia.
  simpl orb. cbn iota. simpl andb.
  destruct (is_ascii_letter c) eqn:Hl.
  - set (w := keyword_of 15 _).
    assert (span_len is_ascii_letter (c :: body ++ cs)
            = span_len is_ascii_letter (c :: body)) as Hspan.
    { clear -Hcs. change (c :: body ++ cs) with ((c :: body) ++ cs).
      induction (c :: body) as [|c' b IH]; simpl.
      - destruct cs; simpl in *; [done|]. by rewrite Hcs.
      - destruct (is_ascii_letter c'); by rewrite ?IH. }
    assert (length w = min 15 (span_len is_ascii_letter (c :: body))) as Hlen.
    { unfold w. by rewrite keyword_of_length, Hspan. }
    pose proof (span_len_le is_ascii_letter (c :: body)) as Hle.
    assert (0 < span_len is_ascii_letter (c :: body))%nat by (simpl; rewrite Hl; lia).
    eexists _, _. split; [done|]. split; [lia|]. intros st Hd.
    assert (Forall (λ c, is_ascii_letter c = true) (take (length w) (c :: body))) as Hw.
    { rewrite Hlen, <- take_take. apply Forall_take, span_len_take. }
    assert (Forall (λ c, directive_char c = true) (take (length w) (c :: body))).
    { eapply Forall_impl; [done|]. simpl. intros c' Hc'. unfold directive_char.
      by rewrite Hc'. }
    simpl apply_item. destruct (_ || _); split; simpl; try done;
      by rewrite existsb_semi_letters, orb_false_r.
  - replace (c =? c! "'") with false by lia. replace (c =? c! "/") with false by lia.
    eexists _, _. split; [done|]. split; [simpl; lia|]. intros st Hd.
    assert (is_newline c = false) as Hnl by (unfold is_newline in *; lia).
    simpl take. rewrite take_0. simpl apply_item. rewrite Hnl.
    destruct (Z.eqb_spec c (c! ";")) as [->|Hne]; simpl.
    + rewrite Hd. simpl. split; simpl; try done; [by rewrite orb_true_r|].
      intros ?. split; [done|]. by repeat constructor.
    + apply Z.eqb_neq in Hne.
      destruct (is_space_or_newline c) eqn:Hsp; simpl; split; simpl;
        rewrite ?Hne, ?orb_false_r; try done.
      intros ?. split; [done|]. constructor; [|done].
      unfold directive_char. by rewrite Hsp, orb_true_r.
Qed.

Lemma plain_effect_trans b1 b2 st1 st2 st3 :
  plain_effect b1 st1 st2 → plain_effect b2 st2 st3 → plain_effect (b1 ++ b2) st1 st3.
Proof.
  intros [] []. split; [done|congruence| |].
  - rewrite existsb_app, orb_assoc. congruence.
  - intros Ho. destruct (pe_only1 Ho) as [Ho2 ?]. destruct (pe_only0 Ho2).
    split; [done|]. by apply Forall_app_2.
Qed.

Lemma runs_plain body st cs :
  depth st = 1 → Forall (λ c, plain c = true) body →
  is_ascii_letter (peek cs) = false →
  ∃ its st1, plain_effect body st st1
    ∧ ∀ its2 st2 cs2, runs st1 cs its2 st2 cs2 →
        runs st (body ++ cs) (its ++ its2) st2 cs2.
Proof.
  intros Hd Hb Hcs. remember (length body) as n eqn:Hn. revert body st Hd Hb Hn.
  induction (lt_wf n) as [n _ IH]; intros body st Hd Hb ->.
  destruct body as [|c body].
  { exists [], st. split; [|done]. split; rewrite ?orb_false_r; [done..|].
    intros ?. by split. }
  destruct (next_item_plain c body cs Hb Hcs) as (it & m & Hit & Hm & Heff).
  destruct (IH (length (drop m (c :: body)))
    ltac:(rewrite length_drop; simpl in *; lia) (drop m (c :: body)) (apply_item it st))
    as (its & st1 & He & Hr).
  { by destruct (Heff st Hd). }
  { by apply Forall_drop. }
  { done. }
  exists (it :: its), st1. split.
  - rewrite <- (take_drop m (c :: body)). eapply plain_effect_trans; eauto.
  - intros its2 st2 cs2 H2. simpl app.
    apply Forall_cons in Hb as [Hc _]. unfold plain in Hc.
    apply (runs_step _ _ _ m); [lia|simpl; lia|by rewrite Hd|].
    change (c :: body ++ cs) with ((c :: body) ++ cs).
    rewrite drop_app_le by lia. by apply Hr.
Qed.

(** The text [{$name arg} body {$endif}]. *)
Definition fragment_text_of (name arg body : list Z) : list Z :=
  codes "{$" ++ name ++ arg ++ c! "}" :: body ++ codes "{$endif}".

(** The closing directive at depth 1 ends the run. *)
Lemma runs_endif st tl :
  depth st = 1 →
  runs st (codes "{$endif}" ++ tl) [IDirective (codes "endif")] (set_depth 0 st) tl.
Proof.
  intros Hd.
  pose proof (directive_item true (codes "endif") [] tl) as Hi.
  apply (runs_step _ _ _ 8); [lia|done| |].
  - rewrite Hd. by apply Hi; concrete.
  - change (drop 8 (codes "{$endif}" ++ tl)) with (drop 0 tl). rewrite drop_0.
    replace (apply_item (IDirective (codes "endif")) st) with (set_depth 0 st)
      by (unfold apply_item; change (opens (codes "endif")) with false;
          change (closes (codes "endif")) with true; by rewrite Hd).
    constructor. simpl. lia.
Qed.

(** A fragment with a plain body runs to its [{$endif}] with the effect of
    that body. *)
Lemma fragment_plain_runs name arg body tl :
  opens (tolower <$> name) = true →
  is_ascii_letter (peek (arg ++ [c! "}"])) = false →
  Forall (λ c, (c =? 0) || (c =? c! "}") = false) arg →
  Forall (λ c, plain c = true) body →
  ∃ n its st,
    fragment_open (fragment_text_of name arg body ++ tl) = Some n
    ∧ runs initial_frag (drop n (fragment_text_of name arg body ++ tl)) its
        (set_depth 0 st) tl
    ∧ plain_effect body initial_frag st.
Proof.
  intros Ho Hp Ha Hb. unfold fragment_text_of.
  set (cs := body ++ codes "{$endif}" ++ tl).
  assert ((codes "{$" ++ name ++ arg ++ c! "}" :: body ++ codes "{$endif}") ++ tl
    = codes "{$" ++ name ++ arg ++ c! "}" :: cs) as ->
    by (unfold cs; rewrite <- !(assoc_L (++)); simpl; by rewrite <- !(assoc_L (++))).
  rewrite fragment_open_directive by done.
  assert (drop (3 + length name + length arg)
    (codes "{$" ++ name ++ arg ++ c! "}" :: cs) = cs) as Hdrop.
  { assert (codes "{$" ++ name ++ arg ++ c! "}" :: cs
      = (codes "{$" ++ name ++ arg ++ [c! "}"]) ++ cs) as ->
      by (rewrite <- !(assoc_L (++)); done).
    apply drop_app_length'. rewrite !length_app. simpl. lia. }
  destruct (runs_plain body initial_frag (codes "{$endif}" ++ tl)) as (its & st & He & Hr);
    [done..|].
  eexists _, (its ++ [IDirective (codes "endif")]), st.
  split; [done|]. split; [|done]. rewrite Hdrop. apply Hr, runs_endif. by destruct He.
Qed.

(** ** Bodies of routine directives *)






(** ** Theorems about the entry point *)

Section fragments.
Context `{TSLexerOk L}.

(** C10. At an opening brace or parenthesis, a token is emitted exactly when
    the text is a fragment, and the token is that fragment: an opening
    conditional directive and a body, cut into words, strings, comments and
    directives with exactly their texts, whose conditional directives are
    balanced (the nesting depth first returns to zero at the directive that
    ends the body).  After it come only the absorbed identifier characters.
    No line break stands outside a directive, and a body that is only a list
    of routine directives is not a fragment.  The token is a statement
    fragment when the body has a top-level semicolon and the parser accepts
    one, and otherwise an expression fragment, which the parser must
    accept. *)
Theorem fragment_well_formed fuel p (l : L) valid t tl :
  (length (rest l) < fuel)%nat → Z.of_nat (length (rest l)) < 2 ^ 32 →
  peek (rest l) = c! "{" ∨ peek (rest l) = c! "(" →
  emits fuel p l valid t tl
  ↔ ∃ kw open body its chain,
      fragment_contents valid (rest l) t tl kw open body its chain.
Proof.
  intros Hf Hb Hp. split.
  - intros Ht%emits_inv; [|done..].
    apply token_at_bracket in Ht as [_ Ht]; [|done].
    by apply fragment_token_contents.
  - intros (kw & open & body & its & chain & Hc).
    pose proof (fc_token _ _ _ _ _ _ _ _ _ Hc) as Hv.
    apply emits_token_at; [done..|]. apply token_at_bracket; [done|].
    split; [|by eapply fragment_contents_token].
    destruct (valid PP_FRAGMENT_EXPR); [done|]. simpl.
    destruct (valid PP_FRAGMENT_STMT); [done|]. rewrite andb_false_r in Hv. naive_solver.
Qed.

(** C28. A token emitted at an opening brace or parenthesis has no line break
    outside its compiler directives: it is cut into items, each with exactly
    its text, and the strings, comments, words and punctuation among them and
    the absorbed identifier characters all lie on one line. *)
Theorem fragment_line_breaks fuel p (l : L) valid t tl :
  (length (rest l) < fuel)%nat → Z.of_nat (length (rest l)) < 2 ^ 32 →
  peek (rest l) = c! "{" ∨ peek (rest l) = c! "(" →
  emits fuel p l valid t tl →
  ∃ kw open body its chain,
    rest l = open ++ body ∧ item_text false (IDirective kw) open body
    ∧ body_text 1 its body (chain ++ tl)
    ∧ Forall (λ '(it, txt), is_directive it = false → no_newline txt) its
    ∧ no_newline chain.
Proof.
  intros Hf Hb Hp Ht%emits_inv; [|done..].
  apply token_at_bracket in Ht as [_ Ht]; [|done].
  destruct (fragment_token_contents _ _ _ _ Hb Ht) as (kw & open & body & its & chain & []).
  exists kw, open, body, its, chain. split_and!; [done..| |].
  - by eapply body_text_lines.
  - by apply (no_newline_Forall in_chain).
Qed.

(** C29. Completeness on plain bodies: [{$if.. arg} body {$endif}] with any
    argument and any body without strings, comments, directives and line
    breaks is one token, unless its characters could all belong to a list of
    routine directives.  Neither line breaks inside the directive's argument
    nor blanks after the directive matter. *)
Theorem plain_fragment_accepted fuel p (l : L) valid name arg body tl :
  (length (rest l) < fuel)%nat → Z.of_nat (length (rest l)) < 2 ^ 32 →
  opens (tolower <$> name) = true →
  is_ascii_letter (peek (arg ++ [c! "}"])) = false →
  Forall (λ c, (c =? 0) || (c =? c! "}") = false) arg →
  Forall (λ c, plain c = true) body →
  existsb (λ c, negb (directive_char c)) body = true →
  valid PP_FRAGMENT_EXPR = true →
  rest l = fragment_text_of name arg body ++ tl →
  if existsb (λ c, c =? c! ";") body && valid PP_FRAGMENT_STMT
  then emits fuel p l valid PP_FRAGMENT_STMT tl
  else emits fuel p l valid PP_FRAGMENT_EXPR (drop (span_len in_chain tl) tl).
Proof.
  intros Hf Hb Ho Hp Ha Hpl Hnd Hv Hr.
  destruct (fragment_plain_runs name arg body tl Ho Hp Ha Hpl)
    as (n & its & st & Hopen & Hruns & []).
  rewrite <- Hr in Hopen, Hruns.
  assert (directives_only st = false) as Hno.
  { destruct (directives_only st) eqn:E; [|done].
    destruct (pe_only0 eq_refl) as [_ Hall].
    apply existsb_exists in Hnd as (c & Hc%list_elem_of_In & Hnc).
    apply (proj1 (Forall_forall _ _) Hall) in Hc. by rewrite Hc in Hnc. }
  assert (∀ t tl', (if existsb (λ c, c =? c! ";") body && valid PP_FRAGMENT_STMT
      then t = PP_FRAGMENT_STMT ∧ tl' = tl
      else valid PP_FRAGMENT_EXPR = true ∧ t = PP_FRAGMENT_EXPR
           ∧ tl' = drop (span_len in_chain tl) tl) → emits fuel p l valid t tl') as Hemit.
  { intros t tl' Ht. apply emits_token_at; [done..|]. apply token_at_bracket.
    { left. rewrite Hr. done. }
    rewrite Hv. split; [done|]. exists n, its, (set_depth 0 st), tl.
    split_and!; [done|done|done|simpl; by rewrite Hno, andb_false_r|].
    simpl. by rewrite pe_semi0. }
  destruct (_ && _); apply Hemit; naive_solver.
Qed.


(** C31. An ampersand does not stop a fragment from being recognised: where
    any word token is acceptable, [&] in front of a fragment is consumed
    and becomes part of the fragment token. *)
Theorem ampersand_joins_fragment fuel p (l : L) valid cs t tl :
  (length (rest l) < fuel)%nat → Z.of_nat (length (rest l)) < 2 ^ 32 →
  has_word_symbol valid = true →
  peek cs = c! "{" ∨ peek cs = c! "(" →
  rest l = c! "&" :: cs →
  (emits fuel p l valid t tl
   ↔ valid PP_FRAGMENT_EXPR || valid PP_FRAGMENT_STMT = true
     ∧ fragment_token valid cs t tl).
Proof.
  intros Hf Hb Hh Hp Hr.
  assert (token_at valid (rest l) t tl
    ↔ valid PP_FRAGMENT_EXPR || valid PP_FRAGMENT_STMT = true
      ∧ fragment_token valid cs t tl) as Ht.
  { unfold token_at. rewrite Hr, Hh. simpl. rewrite andb_false_r, drop_0.
    replace (is_identifier_start (peek cs)) with false by char_lia. done. }
  rewrite <- Ht. split; [by apply emits_inv|by apply emits_token_at].
Qed.
End fragments.

(** ** Witnesses *)

(** [{$ifdef X}System.{$endif}SysUtils], followed by [.], a name and a
    parenthesis. *)
Definition sample_fragment : StrLexer :=
  str_lexer "{$ifdef X}System.{$endif}SysUtils.FreeAndNil(x)".

Lemma fragment_well_formed_witness :
  ∃ kw open body its chain,
    fragment_contents (λ _, true) (str_rest sample_fragment) PP_FRAGMENT_EXPR
      (codes "(x)") kw open body its chain.
Proof.
  refine (proj1 (fragment_well_formed 60 None sample_fragment (λ _, true) PP_FRAGMENT_EXPR
    (codes "(x)") _ _ _) _).
  - concrete.
  - concrete.
  - by left.
  - eexists. split; [by vm_compute|]. by split.
Defined.

Lemma fragment_line_breaks_witness :
  ∃ kw open body its chain,
    str_rest sample_fragment = open ++ body
    ∧ item_text false (IDirective kw) open body
    ∧ body_text 1 its body (chain ++ codes "(x)")
    ∧ Forall (λ '(it, txt), is_directive it = false → no_newline txt) its
    ∧ no_newline chain.
Proof.
  refine (fragment_line_breaks 60 None sample_fragment (λ _, true) PP_FRAGMENT_EXPR
    (codes "(x)") _ _ _ _).
  - concrete.
  - concrete.
  - by left.
  - eexists. split; [by vm_compute|]. by split.
Defined.

(** The argument of the directive holds a line break and the body starts with
    a blank; both are accepted. *)
Definition sample_plain : list Z :=
  fragment_text_of (codes "IfDef") (codes " A" ++ [LF] ++ codes "B") (codes " x + 1;").

Lemma plain_fragment_accepted_witness :
  emits 60 None (MkStrLexer (sample_plain ++ codes " y") [] 0) (λ _, true)
    PP_FRAGMENT_STMT (codes " y").
Proof.
  refine (plain_fragment_accepted 60 None
    (MkStrLexer (sample_plain ++ codes " y") [] 0) (λ _, true)
    (codes "IfDef") (codes " A" ++ [LF] ++ codes "B") (codes " x + 1;") (codes " y")
    _ _ _ _ _ _ _ _ _); concrete.
Defined.


Lemma ampersand_joins_fragment_witness :
  emits 60 None (str_lexer "&{$if A}1{$endif} ") (λ _, true) PP_FRAGMENT_EXPR (codes " ")
  ↔ (λ _, true) PP_FRAGMENT_EXPR || (λ _, true) PP_FRAGMENT_STMT = true
    ∧ fragment_token (λ _, true) (codes "{$if A}1{$endif} ") PP_FRAGMENT_EXPR (codes " ").
Proof.
  refine (ampersand_joins_fragment 60 None (str_lexer "&{$if A}1{$endif} ") (λ _, true)
    (codes "{$if A}1{$endif} ") PP_FRAGMENT_EXPR (codes " ") _ _ _ _ _).
  - concrete.
  - concrete.
  - concrete.
  - by left.
  - done.
Defined.
