(* ===== verification/CaseTheorems.v ===== *)
(** * The scanner ignores letter case

    Pascal is case-insensitive.  The specification functions commute with
    lower-casing the input, so two texts that differ only in the case of ASCII
    letters are scanned alike. *)

From S2P Require Import Prelude.
From S2P Require Import Lexer.
From S2P Require Import Chars.
From S2P Require Import Tokens.
From S2P Require Import Words.
From S2P Require Import Multiline.
From S2P Require Import Fragment.
From S2P Require Import FragmentSpec.
From S2P Require Import Scanner.

(** The input in lower case. *)
Abbreviation lower cs := (fmap (M:=list) tolower cs).

Lemma tolower_idem c : tolower (tolower c) = tolower c.
Proof. char_lia. Qed.

Lemma lower_idem cs : lower (lower cs) = lower cs.
Proof.
  rewrite <- list_fmap_compose. apply list_fmap_ext. intros. apply tolower_idem.
Qed.

Lemma tolower_eqb x c : is_ascii_letter x = false → (tolower c =? x) = (c =? x).
Proof. intros Hx. char_lia. Qed.

Lemma peek_lower cs : peek (lower cs) = tolower (peek cs).
Proof. by destruct cs. Qed.

Lemma drop_lower n cs : drop n (lower cs) = lower (drop n cs).
Proof. by rewrite fmap_drop. Qed.

(** A test that does not distinguish the case of a letter. *)
Definition caseless (p : Z → bool) : Prop := ∀ c, p (tolower c) = p c.

Lemma span_len_lower p cs : caseless p → span_len p (lower cs) = span_len p cs.
Proof.
  intros Hp. induction cs as [|c cs IH]; simpl; [done|].
  rewrite (Hp c). destruct (p c); [|done]. f_equal. apply IH.
Qed.

Lemma caseless_letter : caseless is_ascii_letter.
Proof. intros c. apply is_ascii_letter_tolower. Qed.
Lemma caseless_start : caseless is_identifier_start.
Proof. intros c. apply is_identifier_start_tolower. Qed.
Lemma caseless_continue : caseless is_identifier_continue.
Proof. intros c. apply is_identifier_continue_tolower. Qed.
Lemma caseless_blank : caseless is_blank.
Proof. intros c. unfold is_blank. by rewrite !tolower_eqb. Qed.
Lemma caseless_quote : caseless is_quote.
Proof. intros c. unfold is_quote. by rewrite !tolower_eqb. Qed.
Lemma caseless_newline : caseless is_newline.
Proof. intros c. unfold is_newline. by rewrite !tolower_eqb. Qed.
Lemma caseless_space : caseless is_space_or_newline.
Proof. intros c. unfold is_space_or_newline. by rewrite !tolower_eqb. Qed.
Lemma caseless_string : caseless in_string.
Proof. intros c. unfold in_string. by rewrite !tolower_eqb. Qed.
Lemma caseless_line_comment : caseless in_line_comment.
Proof. intros c. unfold in_line_comment. by rewrite !tolower_eqb. Qed.
Lemma caseless_chain : caseless in_chain.
Proof.
  intros c. unfold in_chain. rewrite caseless_space, caseless_letter, !tolower_eqb by done.
  do 2 f_equal. char_lia.
Qed.

Create HintDb caseless.
#[export] Hint Resolve caseless_letter caseless_start caseless_continue
  caseless_blank caseless_quote caseless_newline caseless_space caseless_string
  caseless_line_comment caseless_chain : caseless.

(** ** Words and multiline strings *)

Lemma keyword_of_lower cap cs : keyword_of cap (lower cs) = keyword_of cap cs.
Proof.
  unfold keyword_of. rewrite span_len_lower, <- fmap_take by auto with caseless.
  apply lower_idem.
Qed.

Lemma word_of_lower cs : word_of (lower cs) = word_of cs.
Proof.
  unfold word_of. rewrite span_len_lower, <- fmap_take by auto with caseless.
  apply lower_idem.
Qed.

Lemma line_starts_lower cs : line_starts (lower cs) = (λ s, lower s) <$> line_starts cs.
Proof.
  induction cs as [|c cs IH]; simpl; [done|]. rewrite tolower_eqb by done.
  destruct (c =? LF); [|done]. simpl. f_equal. apply IH.
Qed.

Lemma leading_quotes_lower s :
  indentation (lower s) = indentation s ∧ leading_quotes (lower s) = leading_quotes s.
Proof.
  unfold leading_quotes, indentation.
  by rewrite span_len_lower, drop_lower, span_len_lower by auto with caseless.
Qed.

Lemma after_delimiter_lower s : after_delimiter (lower s) = lower (after_delimiter s).
Proof.
  unfold after_delimiter. destruct (leading_quotes_lower s) as [-> ->].
  apply drop_lower.
Qed.

Lemma find_lower d xs :
  List.find (λ s, leading_quotes s =? d)%nat ((λ s, lower s) <$> xs)
  = (λ s, lower s) <$> List.find (λ s, leading_quotes s =? d)%nat xs.
Proof.
  induction xs as [|s xs IH]; simpl; [done|].
  destruct (leading_quotes_lower s) as [_ ->].
  destruct (_ =? _)%nat; [done|]. apply IH.
Qed.

Lemma multiline_string_lower cs :
  multiline_string (lower cs) = (λ s, lower s) <$> multiline_string cs.
Proof.
  unfold multiline_string. rewrite span_len_lower by auto with caseless.
  set (d := span_len is_quote cs). rewrite drop_lower.
  destruct (leading_quotes_lower (drop d cs)) as [-> _].
  rewrite drop_lower, peek_lower, !tolower_eqb by done.
  case_match; [|done]. rewrite line_starts_lower, find_lower.
  destruct (List.find _ _); simpl; [|done]. f_equal. apply after_delimiter_lower.
Qed.

(** ** Fragments *)

Definition lower_item (it : item) : item :=
  match it with
  | IChar c => IChar (tolower c)
  | IComment t => IComment (lower t)
  | _ => it
  end.

Lemma close_len_lower ps cs : close_len ps (lower cs) = close_len ps cs.
Proof.
  induction cs as [|c cs IH]; simpl; [done|].
  rewrite !tolower_eqb by done. rewrite <- IH, <- (tolower_eqb (c! ")") (peek cs)) by done.
  by rewrite <- peek_lower.
Qed.

Lemma next_item_lower d1 cs :
  next_item d1 (lower cs) = (λ x, (lower_item x.1, x.2)) <$> next_item d1 cs.
Proof.
  unfold next_item. cbn zeta.
  repeat (rewrite ?drop_lower, ?peek_lower, ?tolower_eqb, ?caseless_letter,
    ?keyword_of_lower, ?close_len_lower, ?span_len_lower by auto with caseless).
  repeat case_match; simplify_eq/=; try done.
  - by destruct (close_len _ _).
  - by destruct (close_len _ _).
  - destruct (close_len _ _); simpl; [|done]. by rewrite fmap_take.
  - destruct (close_len _ _); simpl; [|done]. by rewrite fmap_take.
Qed.

Lemma existsb_lower p cs : caseless p → existsb p (lower cs) = existsb p cs.
Proof. intros Hp. induction cs as [|c cs IH]; simpl; [done|]. rewrite (Hp c). by f_equal. Qed.

Lemma apply_item_lower it st : apply_item (lower_item it) st = apply_item it st.
Proof.
  destruct it; simpl; try done.
  - by rewrite caseless_newline, caseless_space, !tolower_eqb.
  - by rewrite existsb_lower by auto with caseless.
Qed.

Lemma peek_lower_nonzero cs : peek (lower cs) ≠ 0 ↔ peek cs ≠ 0.
Proof. rewrite peek_lower. char_lia. Qed.

Lemma runs_lower st cs its st' cs' :
  runs st cs its st' cs' → runs st (lower cs) (lower_item <$> its) st' (lower cs').
Proof.
  induction 1 as [|st cs it n its st' cs' Hd Hp Hit Hr IH]; [by constructor|].
  apply (runs_step _ _ _ n); [done|by apply peek_lower_nonzero|..].
  - by rewrite next_item_lower, Hit.
  - by rewrite apply_item_lower, drop_lower.
Qed.

Lemma runs_lower_inv st cs its st' cs' :
  runs st (lower cs) its st' cs' →
  ∃ its0 cs0, runs st cs its0 st' cs0 ∧ cs' = lower cs0.
Proof.
  remember (lower cs) as lcs eqn:Hl. intros Hr. revert cs Hl.
  induction Hr as [st lcs|st lcs it n its st' cs' Hd Hp Hit Hr IH]; intros cs ->.
  { exists [], cs. split; [by constructor|done]. }
  rewrite next_item_lower in Hit.
  apply fmap_Some in Hit as ([it0 n0] & Hit & [= -> ->]).
  destruct (IH (drop n0 cs)) as (its0 & cs0 & Hr0 & ->); [apply drop_lower|].
  exists (it0 :: its0), cs0. split; [|done].
  econstructor; [done|by apply peek_lower_nonzero|done|].
  by rewrite <- apply_item_lower.
Qed.

Lemma fragment_open_lower cs : fragment_open (lower cs) = fragment_open cs.
Proof.
  unfold fragment_open. rewrite next_item_lower.
  by destruct (next_item false cs) as [[[] n]|].
Qed.

Lemma fragment_token_lower valid cs t tl :
  fragment_token valid cs t tl → fragment_token valid (lower cs) t (lower tl).
Proof.
  intros (n & its & st & cs' & Ho & Hr%runs_lower & Hn & Hd & Ht).
  exists n, (lower_item <$> its), st, (lower cs').
  rewrite fragment_open_lower, drop_lower. repeat split; [done..|].
  rewrite span_len_lower, drop_lower by auto with caseless.
  by case_match; destruct_and!; subst.
Qed.

Lemma fragment_token_lower_inv valid cs t ltl :
  fragment_token valid (lower cs) t ltl →
  ∃ tl, fragment_token valid cs t tl ∧ ltl = lower tl.
Proof.
  intros (n & its & st & cs' & Ho & Hr & Hn & Hd & Ht).
  rewrite fragment_open_lower in Ho. rewrite drop_lower in Hr.
  apply runs_lower_inv in Hr as (its0 & cs0 & Hr & ->).
  rewrite span_len_lower, drop_lower in Ht by auto with caseless.
  destruct (saw_top_level_semi st && valid PP_FRAGMENT_STMT) eqn:E; destruct_and!; subst.
  all: eexists; split; [|reflexivity]; exists n, its0, st, cs0; rewrite E; done.
Qed.

(** ** The scanner *)

Lemma token_at_lower valid cs t ltl :
  token_at valid (lower cs) t ltl
  ↔ ∃ tl, token_at valid cs t tl ∧ ltl = lower tl.
Proof.
  unfold token_at. cbn zeta.
  rewrite peek_lower, !tolower_eqb by done.
  destruct (valid LITERAL_STRING_MULTILINE && (peek cs =? _)).
  { rewrite multiline_string_lower.
    destruct (multiline_string cs) as [tl|]; simpl; naive_solver. }
  set (cs' := if has_word_symbol valid && (peek cs =? _) then drop 1 cs else cs).
  replace (if has_word_symbol valid && (peek cs =? _) then _ else lower cs)
    with (lower cs') by (unfold cs'; case_match; by rewrite ?drop_lower).
  rewrite peek_lower, caseless_start, word_of_lower, span_len_lower, drop_lower
    by auto with caseless.
  destruct (has_word_symbol valid && is_identifier_start (peek cs')); [naive_solver|].
  split.
  - intros [Hv (tl & Hf & ->)%fragment_token_lower_inv]. eauto.
  - intros (tl & [Hv Hf] & ->). split; [done|]. by apply fragment_token_lower.
Qed.

Section entry.
Context `{TSLexerOk L}.

(** C32. Scanning ignores the case of ASCII letters: two texts that differ
    only in case are both accepted or both rejected, and if accepted they
    get the same token, of the same length. *)
Theorem scan_case_insensitive fuel p1 p2 (l1 l2 : L) valid :
  (length (rest l1) < fuel)%nat → Z.of_nat (length (rest l1)) < 2 ^ 32 →
  lower (rest l1) = lower (rest l2) →
  ∃ b l1' l2',
    tree_sitter_pascal_external_scanner_scan fuel p1 l1 valid = Ret (b, l1') ∧ tree_sitter_pascal_external_scanner_scan fuel p2 l2 valid = Ret (b, l2')
    ∧ (b = true → result_symbol l1' = result_symbol l2'
         ∧ length (token_end l1') = length (token_end l2')).
Proof.
  intros Hf Hb Hl. pose proof (f_equal length Hl) as Hlen.
  rewrite !length_fmap in Hlen.
  destruct (scan_cases fuel p1 l1 valid) as [(t1 & k1 & Ht1 & ->)|(Hno1 & l1' & -> & _)];
    [done..| |];
  (destruct (scan_cases fuel p2 l2 valid) as [(t2 & k2 & Ht2 & ->)|(Hno2 & l2' & -> & _)];
    [by rewrite <- Hlen..| |]).
  2,3: exfalso.
  - eexists true, _, _. split_and!; [done..|]. intros _. unfold emit.
    rewrite !result_set_result, !token_end_set_result, !token_end_mark_end, !rest_advs.
    assert (∃ tl, token_at valid (rest l1) t2 tl
      ∧ lower (drop k2 (rest l2)) = lower tl) as (tl & Ht & Htl).
    { apply token_at_lower. rewrite Hl. apply token_at_lower. eauto. }
    destruct (token_at_deterministic _ _ _ _ _ _ Ht1 Ht) as [-> ->].
    split; [done|]. apply (f_equal length) in Htl. by rewrite !length_fmap in Htl.
  - assert (∃ tl, token_at valid (rest l2) t1 tl
      ∧ lower (drop k1 (rest l1)) = lower tl) as (tl & Ht & _).
    { apply token_at_lower. rewrite <- Hl. apply token_at_lower. eauto. }
    by eapply Hno2.
  - assert (∃ tl, token_at valid (rest l1) t2 tl
      ∧ lower (drop k2 (rest l2)) = lower tl) as (tl & Ht & _).
    { apply token_at_lower. rewrite Hl. apply token_at_lower. eauto. }
    by eapply Hno1.
  - by eexists false, _, _.
Qed.
End entry.

Lemma scan_case_insensitive_witness :
  ∃ b l1' l2',
    tree_sitter_pascal_external_scanner_scan 40 None (str_lexer "{$IfDef X}Foo{$EndIf}.Bar") (λ _, true) = Ret (b, l1')
    ∧ tree_sitter_pascal_external_scanner_scan 40 None (str_lexer "{$IFDEF x}foo{$endif}.bar") (λ _, true) = Ret (b, l2')
    ∧ (b = true → result_symbol l1' = result_symbol l2'
         ∧ length (token_end l1') = length (token_end l2')).
Proof.
  refine (scan_case_insensitive 40 None None (str_lexer "{$IfDef X}Foo{$EndIf}.Bar")
    (str_lexer "{$IFDEF x}foo{$endif}.bar") (λ _, true) _ _ _); concrete.
Defined.
