(* ===== verification/Symbols.v ===== *)
(** * The symbol tables of [parser.c]

    [ts_symbol] is the enumeration of the grammar's symbols, with the
    predefined end-of-input symbol of [parser.h] at its head;
    [symbol_index] is the value of an enumerator.  The arrays
    [ts_symbol_names], [ts_symbol_map] and [ts_symbol_metadata] are
    transcribed initializer by initializer, in blocks, and read with
    [entry]: a designated initializer [[s] = v] sets the element of index
    [s]. *)

From S2P Require Import Prelude.

(** [enum ts_symbol_identifiers] and [ts_builtin_sym_end]. *)
Inductive ts_symbol : Set :=
  | ts_builtin_sym_end | aux_sym_asmBody_token1 | anon_sym_SEMI
  | anon_sym_COLON | anon_sym_COMMA | aux_sym_asmBody_token2
  | aux_sym_asmBody_token3 | anon_sym_LBRACK | anon_sym_RBRACK
  | anon_sym_LPAREN | anon_sym_RPAREN | anon_sym_DOT_DOT
  | aux_sym__literalString_token1 | anon_sym_POUND
  | aux_sym__literalInt_token1 | aux_sym__literalInt_token2
  | aux_sym__literalInt_token3 | aux_sym__literalFloat_token1
  | aux_sym_ppUsesBlock_token1 | aux_sym_ppUsesBlock_token2
  | aux_sym_ppUsesBlock_token3 | anon_sym_DOT | sym_kLt | sym_kEq | sym_kNeq
  | sym_kGt | sym_kLte | sym_kGte | sym_kAdd | sym_kSub | sym_kMul | sym_kFdiv
  | sym_kAt | sym_kHat | sym_kAssign | sym_kAssignAdd | sym_kAssignSub
  | sym_kAssignMul | sym_kAssignDiv | sym_kTrue | sym_kFalse | sym_labelNumber
  | sym__space | sym_ppDirective | sym_comment | sym_ppFragmentExpr
  | sym_ppFragmentStmt | sym__literalStringMultiline | sym_identifier
  | sym_kConstref | sym_kOut | sym_kAbsolute | sym_kRead | sym_kWrite
  | sym_kImplements | sym_kDefault | sym_kNodefault | sym_kStored | sym_kIndex
  | sym_kDispId | sym_kObjcclass | sym_kObjccategory | sym_kObjcprotocol
  | sym_kHelper | sym_kGeneric | sym_kSpecialize | sym_kOtherwise
  | sym_kRaiseAt | sym_kOn | sym_kOperator | sym_kReference | sym_kPublished
  | sym_kPublic | sym_kProtected | sym_kPrivate | sym_kStrict | sym_kRequired
  | sym_kOptional | sym_kForward | sym_kStatic | sym_kVirtual | sym_kAbstract
  | sym_kSealed | sym_kDynamic | sym_kOverride | sym_kOverload
  | sym_kReintroduce | sym_kStdcall | sym_kCdecl | sym_kCppdecl | sym_kPascal
  | sym_kRegister | sym_kMwpascal | sym_kExternal | sym_kName | sym_kMessage
  | sym_kDeprecated | sym_kExperimental | sym_kPlatform | sym_kUnimplemented
  | sym_kCvar | sym_kExport | sym_kFar | sym_kNear | sym_kSafecall
  | sym_kAssembler | sym_kNostackframe | sym_kInterrupt | sym_kNoreturn
  | sym_kIocheck | sym_kLocal | sym_kHardfloat | sym_kSoftfloat
  | sym_kMs_abi_default | sym_kMs_abi_cdecl | sym_kSaveregisters
  | sym_kSysv_abi_default | sym_kSysv_abi_cdecl | sym_kVectorcall
  | sym_kVarargs | sym_kWinapi | sym_kAlias | sym_kDelayed | sym_kAnd
  | sym_kArray | sym_kAs | sym_kAsm | sym_kBegin | sym_kCase | sym_kClass
  | sym_kConst | sym_kConstructor | sym_kDestructor | sym_kDispInterface
  | sym_kDiv | sym_kDo | sym_kDownto | sym_kElse | sym_kEnd | sym_kExcept
  | sym_kExports | sym_kFile | sym_kFinalization | sym_kFinally | sym_kFor
  | sym_kFunction | sym_kGoto | sym_kIf | sym_kImplementation | sym_kIn
  | sym_kInherited | sym_kInitialization | sym_kInline | sym_kInterface
  | sym_kIs | sym_kLabel | sym_kLibrary | sym_kMod | sym_kNil | sym_kNot
  | sym_kObject | sym_kOf | sym_kOr | sym_kPacked | sym_kProcedure
  | sym_kProgram | sym_kProperty | sym_kRaise | sym_kRecord | sym_kRepeat
  | sym_kResourcestring | sym_kSet | sym_kShl | sym_kShr | sym_kString
  | sym_kThen | sym_kThreadvar | sym_kTo | sym_kTry | sym_kType | sym_kUnit
  | sym_kUntil | sym_kUses | sym_kVar | sym_kWhile | sym_kWith | sym_kXor
  | sym_root | sym_program | sym_library | sym_unit | sym_interface
  | sym_implementation | sym_initialization | sym_finalization
  | sym__initializationBegin | sym_moduleName | sym_if | sym_ifElse
  | sym_while | sym_repeat | sym_for | sym_foreach | sym_exceptionHandler
  | sym_exceptionElse | sym_try | sym_caseCase | sym_case | sym_block
  | sym_asm | sym_with | sym_raise | sym_statement | sym_goto
  | sym_labeledStatement | sym__statement | sym_ifTr | sym_ifElseTr
  | sym_whileTr | sym_repeatTr | sym_forTr | sym_foreachTr
  | sym_exceptionHandlerTr | sym__exceptionHandlersTr | sym_tryTr
  | sym_caseCaseTr | sym_caseTr | sym_blockTr | sym_asmTr | sym_withTr
  | sym_raiseTr | sym_statementTr | sym_gotoTr | sym_labeledStatementTr
  | sym__statementTr | sym_assignment | sym_varAssignDef | sym_varDef
  | sym_inlineVarStringTyperef | sym_constDef | sym_label | sym_caseLabel
  | sym__statementsTr | sym_statementsTr | sym_asmBody | sym__expr
  | sym_exprConditional | sym__ref | sym_lambda | sym_inherited | sym_exprDot
  | sym_exprDeref | sym_exprAs | sym_exprTpl | sym_exprSubscript
  | sym_exprCall | sym_legacyFormat | sym_exprArgs | sym__exprIsNot
  | sym_exprBinary | sym_exprUnary | sym_exprParens | sym_exprBrackets
  | sym_type | sym__anonymousRecord | sym_declSubRange | sym__subRangeBound
  | sym__subRangeCall | sym__subRangeUnary | sym__subRangeBinary | sym_typeref
  | sym__typeref | sym_typerefDot | sym_typerefTpl | sym_typerefPtr
  | sym_typerefArgs | sym_genericDot | sym_genericTpl | sym__genericName
  | sym_genericArgs | sym_genericArg | sym__genericKeywordConstraintTyperef
  | sym__literal | sym_literalString | sym__literalString | sym_literalChar
  | sym_literalNumber | sym__literalInt | sym__literalFloat | sym_range
  | aux_sym__definitions | sym__definition | sym_defProc | sym__defProcImpl
  | sym__defProcBody | sym_declProcFwd | sym__visibility
  | aux_sym__declarations | aux_sym__classDeclarations | sym_defaultValue
  | sym_declUses | sym__usesClauseEntry | sym__usesModule | sym_ppUsesBlock
  | sym_ppUsesBlockWithSemi | sym__ppIf | sym__ppElse | sym__ppEndIf
  | sym_ppBlock | sym__ppStatementBlock | sym_declExports | sym_declTypes
  | sym_declVars | sym_declConsts | sym_declType | sym_declProc | sym_declVar
  | sym_declConst | sym_declLabels | sym_declLabel | sym_declExport
  | sym_declEnum | sym_declEnumValue | sym_declSet | sym_declArray
  | sym_arrayOfConstType | sym_arrayOfConstTyperef | sym_declFile
  | sym_declString | sym_declProcRef | sym_declMetaClass | sym_declClass
  | sym_declIntf | sym_declHelper | sym_guid | sym__declClass
  | sym_declSection | sym_ppDeclSection | aux_sym__declFields | sym_declField
  | sym_declProp | sym_declPropArgs | sym_declVariant | sym_declVariantClause
  | sym_declVariantField | sym__declProc | sym__declOperator | sym_operatorDot
  | sym__operatorName | sym_operatorName | sym_declArgs | sym_declArg
  | sym__procAttribute | sym__procAttributeNoExt | sym__procAttributesPp
  | sym_procAttribute | sym_rttiAttributes | sym_procExternal
  | sym__initializer | sym_recInitializer | sym_recInitializerField
  | sym_arrInitializer | sym_kEndDot | sym_kDot | aux_sym_unit_repeat1
  | aux_sym_moduleName_repeat1 | aux_sym_exceptionElse_repeat1
  | aux_sym_case_repeat1 | aux_sym_with_repeat1
  | aux_sym_labeledStatement_repeat1 | aux_sym__exceptionHandlersTr_repeat1
  | aux_sym_caseLabel_repeat1 | aux_sym__statementsTr_repeat1
  | aux_sym_asmBody_repeat1 | aux_sym_exprTpl_repeat1
  | aux_sym_legacyFormat_repeat1 | aux_sym_exprArgs_repeat1
  | aux_sym_type_repeat1 | aux_sym_typerefArgs_repeat1
  | aux_sym_genericArgs_repeat1 | aux_sym_genericArg_repeat1
  | aux_sym_literalString_repeat1 | aux_sym_defProc_repeat1
  | aux_sym__defProcBody_repeat1 | aux_sym_declProcFwd_repeat1
  | aux_sym_declUses_repeat1 | aux_sym_ppUsesBlock_repeat1
  | aux_sym_ppUsesBlock_repeat2 | aux_sym_ppUsesBlockWithSemi_repeat1
  | aux_sym_ppBlock_repeat1 | aux_sym_ppBlock_repeat2
  | aux_sym__ppStatementBlock_repeat1 | aux_sym__ppStatementBlock_repeat2
  | aux_sym_declExports_repeat1 | aux_sym_declTypes_repeat1
  | aux_sym_declVars_repeat1 | aux_sym_declConsts_repeat1
  | aux_sym_declVar_repeat1 | aux_sym_declVar_repeat2
  | aux_sym_declLabels_repeat1 | aux_sym_declExport_repeat1
  | aux_sym_declEnum_repeat1 | aux_sym_declArray_repeat1
  | aux_sym_declClass_repeat1 | aux_sym__declClass_repeat1
  | aux_sym_declProp_repeat1 | aux_sym_declProp_repeat2
  | aux_sym_declPropArgs_repeat1 | aux_sym_declVariant_repeat1
  | aux_sym_declVariantClause_repeat1 | aux_sym__declProc_repeat1
  | aux_sym__procAttribute_repeat1 | aux_sym__procAttributeNoExt_repeat1
  | aux_sym__procAttributeNoExt_repeat2 | aux_sym__procAttributesPp_repeat1
  | aux_sym__procAttributesPp_repeat2 | aux_sym_rttiAttributes_repeat1
  | aux_sym_rttiAttributes_repeat2 | aux_sym_recInitializer_repeat1
  | aux_sym_arrInitializer_repeat1.

(** The value of an enumerator. *)
Definition symbol_index (s : ts_symbol) : nat :=
  match s with
  | ts_builtin_sym_end => 0 | aux_sym_asmBody_token1 => 1 | anon_sym_SEMI => 2
  | anon_sym_COLON => 3 | anon_sym_COMMA => 4 | aux_sym_asmBody_token2 => 5
  | aux_sym_asmBody_token3 => 6 | anon_sym_LBRACK => 7 | anon_sym_RBRACK => 8
  | anon_sym_LPAREN => 9 | anon_sym_RPAREN => 10 | anon_sym_DOT_DOT => 11
  | aux_sym__literalString_token1 => 12 | anon_sym_POUND => 13
  | aux_sym__literalInt_token1 => 14 | aux_sym__literalInt_token2 => 15
  | aux_sym__literalInt_token3 => 16 | aux_sym__literalFloat_token1 => 17
  | aux_sym_ppUsesBlock_token1 => 18 | aux_sym_ppUsesBlock_token2 => 19
  | aux_sym_ppUsesBlock_token3 => 20 | anon_sym_DOT => 21 | sym_kLt => 22
  | sym_kEq => 23 | sym_kNeq => 24 | sym_kGt => 25 | sym_kLte => 26
  | sym_kGte => 27 | sym_kAdd => 28 | sym_kSub => 29 | sym_kMul => 30
  | sym_kFdiv => 31 | sym_kAt => 32 | sym_kHat => 33 | sym_kAssign => 34
  | sym_kAssignAdd => 35 | sym_kAssignSub => 36 | sym_kAssignMul => 37
  | sym_kAssignDiv => 38 | sym_kTrue => 39 | sym_kFalse => 40
  | sym_labelNumber => 41 | sym__space => 42 | sym_ppDirective => 43
  | sym_comment => 44 | sym_ppFragmentExpr => 45 | sym_ppFragmentStmt => 46
  | sym__literalStringMultiline => 47 | sym_identifier => 48
  | sym_kConstref => 49 | sym_kOut => 50 | sym_kAbsolute => 51
  | sym_kRead => 52 | sym_kWrite => 53 | sym_kImplements => 54
  | sym_kDefault => 55 | sym_kNodefault => 56 | sym_kStored => 57
  | sym_kIndex => 58 | sym_kDispId => 59 | sym_kObjcclass => 60
  | sym_kObjccategory => 61 | sym_kObjcprotocol => 62 | sym_kHelper => 63
  | sym_kGeneric => 64 | sym_kSpecialize => 65 | sym_kOtherwise => 66
  | sym_kRaiseAt => 67 | sym_kOn => 68 | sym_kOperator => 69
  | sym_kReference => 70 | sym_kPublished => 71 | sym_kPublic => 72
  | sym_kProtected => 73 | sym_kPrivate => 74 | sym_kStrict => 75
  | sym_kRequired => 76 | sym_kOptional => 77 | sym_kForward => 78
  | sym_kStatic => 79 | sym_kVirtual => 80 | sym_kAbstract => 81
  | sym_kSealed => 82 | sym_kDynamic => 83 | sym_kOverride => 84
  | sym_kOverload => 85 | sym_kReintroduce => 86 | sym_kStdcall => 87
  | sym_kCdecl => 88 | sym_kCppdecl => 89 | sym_kPascal => 90
  | sym_kRegister => 91 | sym_kMwpascal => 92 | sym_kExternal => 93
  | sym_kName => 94 | sym_kMessage => 95 | sym_kDeprecated => 96
  | sym_kExperimental => 97 | sym_kPlatform => 98 | sym_kUnimplemented => 99
  | sym_kCvar => 100 | sym_kExport => 101 | sym_kFar => 102 | sym_kNear => 103
  | sym_kSafecall => 104 | sym_kAssembler => 105 | sym_kNostackframe => 106
  | sym_kInterrupt => 107 | sym_kNoreturn => 108 | sym_kIocheck => 109
  | sym_kLocal => 110 | sym_kHardfloat => 111 | sym_kSoftfloat => 112
  | sym_kMs_abi_default => 113 | sym_kMs_abi_cdecl => 114
  | sym_kSaveregisters => 115 | sym_kSysv_abi_default => 116
  | sym_kSysv_abi_cdecl => 117 | sym_kVectorcall => 118 | sym_kVarargs => 119
  | sym_kWinapi => 120 | sym_kAlias => 121 | sym_kDelayed => 122
  | sym_kAnd => 123 | sym_kArray => 124 | sym_kAs => 125 | sym_kAsm => 126
  | sym_kBegin => 127 | sym_kCase => 128 | sym_kClass => 129
  | sym_kConst => 130 | sym_kConstructor => 131 | sym_kDestructor => 132
  | sym_kDispInterface => 133 | sym_kDiv => 134 | sym_kDo => 135
  | sym_kDownto => 136 | sym_kElse => 137 | sym_kEnd => 138
  | sym_kExcept => 139 | sym_kExports => 140 | sym_kFile => 141
  | sym_kFinalization => 142 | sym_kFinally => 143 | sym_kFor => 144
  | sym_kFunction => 145 | sym_kGoto => 146 | sym_kIf => 147
  | sym_kImplementation => 148 | sym_kIn => 149 | sym_kInherited => 150
  | sym_kInitialization => 151 | sym_kInline => 152 | sym_kInterface => 153
  | sym_kIs => 154 | sym_kLabel => 155 | sym_kLibrary => 156 | sym_kMod => 157
  | sym_kNil => 158 | sym_kNot => 159 | sym_kObject => 160 | sym_kOf => 161
  | sym_kOr => 162 | sym_kPacked => 163 | sym_kProcedure => 164
  | sym_kProgram => 165 | sym_kProperty => 166 | sym_kRaise => 167
  | sym_kRecord => 168 | sym_kRepeat => 169 | sym_kResourcestring => 170
  | sym_kSet => 171 | sym_kShl => 172 | sym_kShr => 173 | sym_kString => 174
  | sym_kThen => 175 | sym_kThreadvar => 176 | sym_kTo => 177
  | sym_kTry => 178 | sym_kType => 179 | sym_kUnit => 180 | sym_kUntil => 181
  | sym_kUses => 182 | sym_kVar => 183 | sym_kWhile => 184 | sym_kWith => 185
  | sym_kXor => 186 | sym_root => 187 | sym_program => 188
  | sym_library => 189 | sym_unit => 190 | sym_interface => 191
  | sym_implementation => 192 | sym_initialization => 193
  | sym_finalization => 194 | sym__initializationBegin => 195
  | sym_moduleName => 196 | sym_if => 197 | sym_ifElse => 198
  | sym_while => 199 | sym_repeat => 200 | sym_for => 201 | sym_foreach => 202
  | sym_exceptionHandler => 203 | sym_exceptionElse => 204 | sym_try => 205
  | sym_caseCase => 206 | sym_case => 207 | sym_block => 208 | sym_asm => 209
  | sym_with => 210 | sym_raise => 211 | sym_statement => 212
  | sym_goto => 213 | sym_labeledStatement => 214 | sym__statement => 215
  | sym_ifTr => 216 | sym_ifElseTr => 217 | sym_whileTr => 218
  | sym_repeatTr => 219 | sym_forTr => 220 | sym_foreachTr => 221
  | sym_exceptionHandlerTr => 222 | sym__exceptionHandlersTr => 223
  | sym_tryTr => 224 | sym_caseCaseTr => 225 | sym_caseTr => 226
  | sym_blockTr => 227 | sym_asmTr => 228 | sym_withTr => 229
  | sym_raiseTr => 230 | sym_statementTr => 231 | sym_gotoTr => 232
  | sym_labeledStatementTr => 233 | sym__statementTr => 234
  | sym_assignment => 235 | sym_varAssignDef => 236 | sym_varDef => 237
  | sym_inlineVarStringTyperef => 238 | sym_constDef => 239 | sym_label => 240
  | sym_caseLabel => 241 | sym__statementsTr => 242 | sym_statementsTr => 243
  | sym_asmBody => 244 | sym__expr => 245 | sym_exprConditional => 246
  | sym__ref => 247 | sym_lambda => 248 | sym_inherited => 249
  | sym_exprDot => 250 | sym_exprDeref => 251 | sym_exprAs => 252
  | sym_exprTpl => 253 | sym_exprSubscript => 254 | sym_exprCall => 255
  | sym_legacyFormat => 256 | sym_exprArgs => 257 | sym__exprIsNot => 258
  | sym_exprBinary => 259 | sym_exprUnary => 260 | sym_exprParens => 261
  | sym_exprBrackets => 262 | sym_type => 263 | sym__anonymousRecord => 264
  | sym_declSubRange => 265 | sym__subRangeBound => 266
  | sym__subRangeCall => 267 | sym__subRangeUnary => 268
  | sym__subRangeBinary => 269 | sym_typeref => 270 | sym__typeref => 271
  | sym_typerefDot => 272 | sym_typerefTpl => 273 | sym_typerefPtr => 274
  | sym_typerefArgs => 275 | sym_genericDot => 276 | sym_genericTpl => 277
  | sym__genericName => 278 | sym_genericArgs => 279 | sym_genericArg => 280
  | sym__genericKeywordConstraintTyperef => 281 | sym__literal => 282
  | sym_literalString => 283 | sym__literalString => 284
  | sym_literalChar => 285 | sym_literalNumber => 286 | sym__literalInt => 287
  | sym__literalFloat => 288 | sym_range => 289 | aux_sym__definitions => 290
  | sym__definition => 291 | sym_defProc => 292 | sym__defProcImpl => 293
  | sym__defProcBody => 294 | sym_declProcFwd => 295 | sym__visibility => 296
  | aux_sym__declarations => 297 | aux_sym__classDeclarations => 298
  | sym_defaultValue => 299 | sym_declUses => 300
  | sym__usesClauseEntry => 301 | sym__usesModule => 302
  | sym_ppUsesBlock => 303 | sym_ppUsesBlockWithSemi => 304 | sym__ppIf => 305
  | sym__ppElse => 306 | sym__ppEndIf => 307 | sym_ppBlock => 308
  | sym__ppStatementBlock => 309 | sym_declExports => 310
  | sym_declTypes => 311 | sym_declVars => 312 | sym_declConsts => 313
  | sym_declType => 314 | sym_declProc => 315 | sym_declVar => 316
  | sym_declConst => 317 | sym_declLabels => 318 | sym_declLabel => 319
  | sym_declExport => 320 | sym_declEnum => 321 | sym_declEnumValue => 322
  | sym_declSet => 323 | sym_declArray => 324 | sym_arrayOfConstType => 325
  | sym_arrayOfConstTyperef => 326 | sym_declFile => 327
  | sym_declString => 328 | sym_declProcRef => 329 | sym_declMetaClass => 330
  | sym_declClass => 331 | sym_declIntf => 332 | sym_declHelper => 333
  | sym_guid => 334 | sym__declClass => 335 | sym_declSection => 336
  | sym_ppDeclSection => 337 | aux_sym__declFields => 338
  | sym_declField => 339 | sym_declProp => 340 | sym_declPropArgs => 341
  | sym_declVariant => 342 | sym_declVariantClause => 343
  | sym_declVariantField => 344 | sym__declProc => 345
  | sym__declOperator => 346 | sym_operatorDot => 347
  | sym__operatorName => 348 | sym_operatorName => 349 | sym_declArgs => 350
  | sym_declArg => 351 | sym__procAttribute => 352
  | sym__procAttributeNoExt => 353 | sym__procAttributesPp => 354
  | sym_procAttribute => 355 | sym_rttiAttributes => 356
  | sym_procExternal => 357 | sym__initializer => 358
  | sym_recInitializer => 359 | sym_recInitializerField => 360
  | sym_arrInitializer => 361 | sym_kEndDot => 362 | sym_kDot => 363
  | aux_sym_unit_repeat1 => 364 | aux_sym_moduleName_repeat1 => 365
  | aux_sym_exceptionElse_repeat1 => 366 | aux_sym_case_repeat1 => 367
  | aux_sym_with_repeat1 => 368 | aux_sym_labeledStatement_repeat1 => 369
  | aux_sym__exceptionHandlersTr_repeat1 => 370
  | aux_sym_caseLabel_repeat1 => 371 | aux_sym__statementsTr_repeat1 => 372
  | aux_sym_asmBody_repeat1 => 373 | aux_sym_exprTpl_repeat1 => 374
  | aux_sym_legacyFormat_repeat1 => 375 | aux_sym_exprArgs_repeat1 => 376
  | aux_sym_type_repeat1 => 377 | aux_sym_typerefArgs_repeat1 => 378
  | aux_sym_genericArgs_repeat1 => 379 | aux_sym_genericArg_repeat1 => 380
  | aux_sym_literalString_repeat1 => 381 | aux_sym_defProc_repeat1 => 382
  | aux_sym__defProcBody_repeat1 => 383 | aux_sym_declProcFwd_repeat1 => 384
  | aux_sym_declUses_repeat1 => 385 | aux_sym_ppUsesBlock_repeat1 => 386
  | aux_sym_ppUsesBlock_repeat2 => 387
  | aux_sym_ppUsesBlockWithSemi_repeat1 => 388
  | aux_sym_ppBlock_repeat1 => 389 | aux_sym_ppBlock_repeat2 => 390
  | aux_sym__ppStatementBlock_repeat1 => 391
  | aux_sym__ppStatementBlock_repeat2 => 392
  | aux_sym_declExports_repeat1 => 393 | aux_sym_declTypes_repeat1 => 394
  | aux_sym_declVars_repeat1 => 395 | aux_sym_declConsts_repeat1 => 396
  | aux_sym_declVar_repeat1 => 397 | aux_sym_declVar_repeat2 => 398
  | aux_sym_declLabels_repeat1 => 399 | aux_sym_declExport_repeat1 => 400
  | aux_sym_declEnum_repeat1 => 401 | aux_sym_declArray_repeat1 => 402
  | aux_sym_declClass_repeat1 => 403 | aux_sym__declClass_repeat1 => 404
  | aux_sym_declProp_repeat1 => 405 | aux_sym_declProp_repeat2 => 406
  | aux_sym_declPropArgs_repeat1 => 407 | aux_sym_declVariant_repeat1 => 408
  | aux_sym_declVariantClause_repeat1 => 409
  | aux_sym__declProc_repeat1 => 410 | aux_sym__procAttribute_repeat1 => 411
  | aux_sym__procAttributeNoExt_repeat1 => 412
  | aux_sym__procAttributeNoExt_repeat2 => 413
  | aux_sym__procAttributesPp_repeat1 => 414
  | aux_sym__procAttributesPp_repeat2 => 415
  | aux_sym_rttiAttributes_repeat1 => 416
  | aux_sym_rttiAttributes_repeat2 => 417
  | aux_sym_recInitializer_repeat1 => 418
  | aux_sym_arrInitializer_repeat1 => 419
  end.

(** Every enumerator, in order. *)
Definition all_symbols : list ts_symbol :=
  [
   ts_builtin_sym_end; aux_sym_asmBody_token1; anon_sym_SEMI; anon_sym_COLON;
   anon_sym_COMMA; aux_sym_asmBody_token2; aux_sym_asmBody_token3;
   anon_sym_LBRACK; anon_sym_RBRACK; anon_sym_LPAREN; anon_sym_RPAREN;
   anon_sym_DOT_DOT; aux_sym__literalString_token1; anon_sym_POUND;
   aux_sym__literalInt_token1; aux_sym__literalInt_token2;
   aux_sym__literalInt_token3; aux_sym__literalFloat_token1;
   aux_sym_ppUsesBlock_token1; aux_sym_ppUsesBlock_token2;
   aux_sym_ppUsesBlock_token3; anon_sym_DOT; sym_kLt; sym_kEq; sym_kNeq;
   sym_kGt; sym_kLte; sym_kGte; sym_kAdd; sym_kSub; sym_kMul; sym_kFdiv;
   sym_kAt; sym_kHat; sym_kAssign; sym_kAssignAdd; sym_kAssignSub;
   sym_kAssignMul; sym_kAssignDiv; sym_kTrue; sym_kFalse; sym_labelNumber;
   sym__space; sym_ppDirective; sym_comment; sym_ppFragmentExpr;
   sym_ppFragmentStmt; sym__literalStringMultiline; sym_identifier;
   sym_kConstref; sym_kOut; sym_kAbsolute; sym_kRead; sym_kWrite;
   sym_kImplements; sym_kDefault; sym_kNodefault; sym_kStored; sym_kIndex;
   sym_kDispId; sym_kObjcclass; sym_kObjccategory; sym_kObjcprotocol;
   sym_kHelper; sym_kGeneric; sym_kSpecialize; sym_kOtherwise; sym_kRaiseAt;
   sym_kOn; sym_kOperator; sym_kReference; sym_kPublished; sym_kPublic;
   sym_kProtected; sym_kPrivate; sym_kStrict; sym_kRequired; sym_kOptional;
   sym_kForward; sym_kStatic; sym_kVirtual; sym_kAbstract; sym_kSealed;
   sym_kDynamic; sym_kOverride; sym_kOverload; sym_kReintroduce; sym_kStdcall;
   sym_kCdecl; sym_kCppdecl; sym_kPascal; sym_kRegister; sym_kMwpascal;
   sym_kExternal; sym_kName; sym_kMessage; sym_kDeprecated; sym_kExperimental;
   sym_kPlatform; sym_kUnimplemented; sym_kCvar; sym_kExport; sym_kFar;
   sym_kNear; sym_kSafecall; sym_kAssembler; sym_kNostackframe;
   sym_kInterrupt; sym_kNoreturn; sym_kIocheck; sym_kLocal; sym_kHardfloat;
   sym_kSoftfloat; sym_kMs_abi_default; sym_kMs_abi_cdecl; sym_kSaveregisters;
   sym_kSysv_abi_default; sym_kSysv_abi_cdecl; sym_kVectorcall; sym_kVarargs;
   sym_kWinapi; sym_kAlias; sym_kDelayed; sym_kAnd; sym_kArray; sym_kAs;
   sym_kAsm; sym_kBegin; sym_kCase; sym_kClass; sym_kConst; sym_kConstructor;
   sym_kDestructor; sym_kDispInterface; sym_kDiv; sym_kDo; sym_kDownto;
   sym_kElse; sym_kEnd; sym_kExcept; sym_kExports; sym_kFile;
   sym_kFinalization; sym_kFinally; sym_kFor; sym_kFunction; sym_kGoto;
   sym_kIf; sym_kImplementation; sym_kIn; sym_kInherited; sym_kInitialization;
   sym_kInline; sym_kInterface; sym_kIs; sym_kLabel; sym_kLibrary; sym_kMod;
   sym_kNil; sym_kNot; sym_kObject; sym_kOf; sym_kOr; sym_kPacked;
   sym_kProcedure; sym_kProgram; sym_kProperty; sym_kRaise; sym_kRecord;
   sym_kRepeat; sym_kResourcestring; sym_kSet; sym_kShl; sym_kShr;
   sym_kString; sym_kThen; sym_kThreadvar; sym_kTo; sym_kTry; sym_kType;
   sym_kUnit; sym_kUntil; sym_kUses; sym_kVar; sym_kWhile; sym_kWith;
   sym_kXor; sym_root; sym_program; sym_library; sym_unit; sym_interface;
   sym_implementation; sym_initialization; sym_finalization;
   sym__initializationBegin; sym_moduleName; sym_if; sym_ifElse; sym_while;
   sym_repeat; sym_for; sym_foreach; sym_exceptionHandler; sym_exceptionElse;
   sym_try; sym_caseCase; sym_case; sym_block; sym_asm; sym_with; sym_raise;
   sym_statement; sym_goto; sym_labeledStatement; sym__statement; sym_ifTr;
   sym_ifElseTr; sym_whileTr; sym_repeatTr; sym_forTr; sym_foreachTr;
   sym_exceptionHandlerTr; sym__exceptionHandlersTr; sym_tryTr;
   sym_caseCaseTr; sym_caseTr; sym_blockTr; sym_asmTr; sym_withTr;
   sym_raiseTr; sym_statementTr; sym_gotoTr; sym_labeledStatementTr;
   sym__statementTr; sym_assignment; sym_varAssignDef; sym_varDef;
   sym_inlineVarStringTyperef; sym_constDef; sym_label; sym_caseLabel;
   sym__statementsTr; sym_statementsTr; sym_asmBody; sym__expr;
   sym_exprConditional; sym__ref; sym_lambda; sym_inherited; sym_exprDot;
   sym_exprDeref; sym_exprAs; sym_exprTpl; sym_exprSubscript; sym_exprCall;
   sym_legacyFormat; sym_exprArgs; sym__exprIsNot; sym_exprBinary;
   sym_exprUnary; sym_exprParens; sym_exprBrackets; sym_type;
   sym__anonymousRecord; sym_declSubRange; sym__subRangeBound;
   sym__subRangeCall; sym__subRangeUnary; sym__subRangeBinary; sym_typeref;
   sym__typeref; sym_typerefDot; sym_typerefTpl; sym_typerefPtr;
   sym_typerefArgs; sym_genericDot; sym_genericTpl; sym__genericName;
   sym_genericArgs; sym_genericArg; sym__genericKeywordConstraintTyperef;
   sym__literal; sym_literalString; sym__literalString; sym_literalChar;
   sym_literalNumber; sym__literalInt; sym__literalFloat; sym_range;
   aux_sym__definitions; sym__definition; sym_defProc; sym__defProcImpl;
   sym__defProcBody; sym_declProcFwd; sym__visibility; aux_sym__declarations;
   aux_sym__classDeclarations; sym_defaultValue; sym_declUses;
   sym__usesClauseEntry; sym__usesModule; sym_ppUsesBlock;
   sym_ppUsesBlockWithSemi; sym__ppIf; sym__ppElse; sym__ppEndIf; sym_ppBlock;
   sym__ppStatementBlock; sym_declExports; sym_declTypes; sym_declVars;
   sym_declConsts; sym_declType; sym_declProc; sym_declVar; sym_declConst;
   sym_declLabels; sym_declLabel; sym_declExport; sym_declEnum;
   sym_declEnumValue; sym_declSet; sym_declArray; sym_arrayOfConstType;
   sym_arrayOfConstTyperef; sym_declFile; sym_declString; sym_declProcRef;
   sym_declMetaClass; sym_declClass; sym_declIntf; sym_declHelper; sym_guid;
   sym__declClass; sym_declSection; sym_ppDeclSection; aux_sym__declFields;
   sym_declField; sym_declProp; sym_declPropArgs; sym_declVariant;
   sym_declVariantClause; sym_declVariantField; sym__declProc;
   sym__declOperator; sym_operatorDot; sym__operatorName; sym_operatorName;
   sym_declArgs; sym_declArg; sym__procAttribute; sym__procAttributeNoExt;
   sym__procAttributesPp; sym_procAttribute; sym_rttiAttributes;
   sym_procExternal; sym__initializer; sym_recInitializer;
   sym_recInitializerField; sym_arrInitializer; sym_kEndDot; sym_kDot;
   aux_sym_unit_repeat1; aux_sym_moduleName_repeat1;
   aux_sym_exceptionElse_repeat1; aux_sym_case_repeat1; aux_sym_with_repeat1;
   aux_sym_labeledStatement_repeat1; aux_sym__exceptionHandlersTr_repeat1;
   aux_sym_caseLabel_repeat1; aux_sym__statementsTr_repeat1;
   aux_sym_asmBody_repeat1; aux_sym_exprTpl_repeat1;
   aux_sym_legacyFormat_repeat1; aux_sym_exprArgs_repeat1;
   aux_sym_type_repeat1; aux_sym_typerefArgs_repeat1;
   aux_sym_genericArgs_repeat1; aux_sym_genericArg_repeat1;
   aux_sym_literalString_repeat1; aux_sym_defProc_repeat1;
   aux_sym__defProcBody_repeat1; aux_sym_declProcFwd_repeat1;
   aux_sym_declUses_repeat1; aux_sym_ppUsesBlock_repeat1;
   aux_sym_ppUsesBlock_repeat2; aux_sym_ppUsesBlockWithSemi_repeat1;
   aux_sym_ppBlock_repeat1; aux_sym_ppBlock_repeat2;
   aux_sym__ppStatementBlock_repeat1; aux_sym__ppStatementBlock_repeat2;
   aux_sym_declExports_repeat1; aux_sym_declTypes_repeat1;
   aux_sym_declVars_repeat1; aux_sym_declConsts_repeat1;
   aux_sym_declVar_repeat1; aux_sym_declVar_repeat2;
   aux_sym_declLabels_repeat1; aux_sym_declExport_repeat1;
   aux_sym_declEnum_repeat1; aux_sym_declArray_repeat1;
   aux_sym_declClass_repeat1; aux_sym__declClass_repeat1;
   aux_sym_declProp_repeat1; aux_sym_declProp_repeat2;
   aux_sym_declPropArgs_repeat1; aux_sym_declVariant_repeat1;
   aux_sym_declVariantClause_repeat1; aux_sym__declProc_repeat1;
   aux_sym__procAttribute_repeat1; aux_sym__procAttributeNoExt_repeat1;
   aux_sym__procAttributeNoExt_repeat2; aux_sym__procAttributesPp_repeat1;
   aux_sym__procAttributesPp_repeat2; aux_sym_rttiAttributes_repeat1;
   aux_sym_rttiAttributes_repeat2; aux_sym_recInitializer_repeat1;
   aux_sym_arrInitializer_repeat1
  ].

Definition SYMBOL_COUNT : nat := 420.
Definition TOKEN_COUNT : nat := 187.

(** [TSSymbolMetadata]; a field without initializer is [false]. *)
Record TSSymbolMetadata := MkMetadata {
  visible : bool;
  named : bool;
  supertype : bool;
}.

(** ** Names *)

Definition ts_symbol_names_1 : list (ts_symbol * string) :=
  [
   (ts_builtin_sym_end, "end"); (aux_sym_asmBody_token1, "asmBody_token1");
   (anon_sym_SEMI, ";"); (anon_sym_COLON, ":"); (anon_sym_COMMA, ",");
   (aux_sym_asmBody_token2, "asmBody_token2");
   (aux_sym_asmBody_token3, "asmBody_token3"); (anon_sym_LBRACK, "[");
   (anon_sym_RBRACK, "]"); (anon_sym_LPAREN, "("); (anon_sym_RPAREN, ")");
   (anon_sym_DOT_DOT, "..");
   (aux_sym__literalString_token1, "_literalString_token1");
   (anon_sym_POUND, "#"); (aux_sym__literalInt_token1, "_literalInt_token1");
   (aux_sym__literalInt_token2, "_literalInt_token2");
   (aux_sym__literalInt_token3, "_literalInt_token3");
   (aux_sym__literalFloat_token1, "_literalFloat_token1");
   (aux_sym_ppUsesBlock_token1, "ppUsesBlock_token1");
   (aux_sym_ppUsesBlock_token2, "ppUsesBlock_token2");
   (aux_sym_ppUsesBlock_token3, "ppUsesBlock_token3"); (anon_sym_DOT, ".");
   (sym_kLt, "kLt"); (sym_kEq, "kEq"); (sym_kNeq, "kNeq"); (sym_kGt, "kGt");
   (sym_kLte, "kLte"); (sym_kGte, "kGte"); (sym_kAdd, "kAdd");
   (sym_kSub, "kSub"); (sym_kMul, "kMul"); (sym_kFdiv, "kFdiv");
   (sym_kAt, "kAt"); (sym_kHat, "kHat"); (sym_kAssign, "kAssign");
   (sym_kAssignAdd, "kAssignAdd"); (sym_kAssignSub, "kAssignSub");
   (sym_kAssignMul, "kAssignMul"); (sym_kAssignDiv, "kAssignDiv");
   (sym_kTrue, "kTrue"); (sym_kFalse, "kFalse");
   (sym_labelNumber, "labelNumber"); (sym__space, "_space");
   (sym_ppDirective, "ppDirective"); (sym_comment, "comment");
   (sym_ppFragmentExpr, "ppFragmentExpr");
   (sym_ppFragmentStmt, "ppFragmentStmt");
   (sym__literalStringMultiline, "_literalStringMultiline");
   (sym_identifier, "identifier"); (sym_kConstref, "kConstref");
   (sym_kOut, "kOut"); (sym_kAbsolute, "kAbsolute"); (sym_kRead, "kRead");
   (sym_kWrite, "kWrite"); (sym_kImplements, "kImplements");
   (sym_kDefault, "kDefault"); (sym_kNodefault, "kNodefault");
   (sym_kStored, "kStored"); (sym_kIndex, "kIndex"); (sym_kDispId, "kDispId");
   (sym_kObjcclass, "kObjcclass"); (sym_kObjccategory, "kObjccategory");
   (sym_kObjcprotocol, "kObjcprotocol"); (sym_kHelper, "kHelper");
   (sym_kGeneric, "kGeneric"); (sym_kSpecialize, "kSpecialize");
   (sym_kOtherwise, "kOtherwise"); (sym_kRaiseAt, "kRaiseAt");
   (sym_kOn, "kOn"); (sym_kOperator, "kOperator");
   (sym_kReference, "kReference"); (sym_kPublished, "kPublished");
   (sym_kPublic, "kPublic"); (sym_kProtected, "kProtected");
   (sym_kPrivate, "kPrivate"); (sym_kStrict, "kStrict");
   (sym_kRequired, "kRequired"); (sym_kOptional, "kOptional");
   (sym_kForward, "kForward"); (sym_kStatic, "kStatic");
   (sym_kVirtual, "kVirtual"); (sym_kAbstract, "kAbstract");
   (sym_kSealed, "kSealed"); (sym_kDynamic, "kDynamic");
   (sym_kOverride, "kOverride"); (sym_kOverload, "kOverload");
   (sym_kReintroduce, "kReintroduce"); (sym_kStdcall, "kStdcall");
   (sym_kCdecl, "kCdecl"); (sym_kCppdecl, "kCppdecl");
   (sym_kPascal, "kPascal"); (sym_kRegister, "kRegister");
   (sym_kMwpascal, "kMwpascal"); (sym_kExternal, "kExternal");
   (sym_kName, "kName"); (sym_kMessage, "kMessage");
   (sym_kDeprecated, "kDeprecated"); (sym_kExperimental, "kExperimental");
   (sym_kPlatform, "kPlatform"); (sym_kUnimplemented, "kUnimplemented");
   (sym_kCvar, "kCvar"); (sym_kExport, "kExport"); (sym_kFar, "kFar");
   (sym_kNear, "kNear"); (sym_kSafecall, "kSafecall");
   (sym_kAssembler, "kAssembler"); (sym_kNostackframe, "kNostackframe");
   (sym_kInterrupt, "kInterrupt"); (sym_kNoreturn, "kNoreturn");
   (sym_kIocheck, "kIocheck"); (sym_kLocal, "kLocal");
   (sym_kHardfloat, "kHardfloat"); (sym_kSoftfloat, "kSoftfloat");
   (sym_kMs_abi_default, "kMs_abi_default");
   (sym_kMs_abi_cdecl, "kMs_abi_cdecl");
   (sym_kSaveregisters, "kSaveregisters");
   (sym_kSysv_abi_default, "kSysv_abi_default");
   (sym_kSysv_abi_cdecl, "kSysv_abi_cdecl"); (sym_kVectorcall, "kVectorcall");
   (sym_kVarargs, "kVarargs"); (sym_kWinapi, "kWinapi");
   (sym_kAlias, "kAlias"); (sym_kDelayed, "kDelayed"); (sym_kAnd, "kAnd");
   (sym_kArray, "kArray"); (sym_kAs, "kAs"); (sym_kAsm, "kAsm");
   (sym_kBegin, "kBegin"); (sym_kCase, "kCase"); (sym_kClass, "kClass");
   (sym_kConst, "kConst"); (sym_kConstructor, "kConstructor");
   (sym_kDestructor, "kDestructor"); (sym_kDispInterface, "kDispInterface");
   (sym_kDiv, "kDiv"); (sym_kDo, "kDo"); (sym_kDownto, "kDownto");
   (sym_kElse, "kElse"); (sym_kEnd, "kEnd"); (sym_kExcept, "kExcept")
  ].

Definition ts_symbol_names_2 : list (ts_symbol * string) :=
  [
   (sym_kExports, "kExports"); (sym_kFile, "kFile");
   (sym_kFinalization, "kFinalization"); (sym_kFinally, "kFinally");
   (sym_kFor, "kFor"); (sym_kFunction, "kFunction"); (sym_kGoto, "kGoto");
   (sym_kIf, "kIf"); (sym_kImplementation, "kImplementation");
   (sym_kIn, "kIn"); (sym_kInherited, "kInherited");
   (sym_kInitialization, "kInitialization"); (sym_kInline, "kInline");
   (sym_kInterface, "kInterface"); (sym_kIs, "kIs"); (sym_kLabel, "kLabel");
   (sym_kLibrary, "kLibrary"); (sym_kMod, "kMod"); (sym_kNil, "kNil");
   (sym_kNot, "kNot"); (sym_kObject, "kObject"); (sym_kOf, "kOf");
   (sym_kOr, "kOr"); (sym_kPacked, "kPacked"); (sym_kProcedure, "kProcedure");
   (sym_kProgram, "kProgram"); (sym_kProperty, "kProperty");
   (sym_kRaise, "kRaise"); (sym_kRecord, "kRecord"); (sym_kRepeat, "kRepeat");
   (sym_kResourcestring, "kResourcestring"); (sym_kSet, "kSet");
   (sym_kShl, "kShl"); (sym_kShr, "kShr"); (sym_kString, "kString");
   (sym_kThen, "kThen"); (sym_kThreadvar, "kThreadvar"); (sym_kTo, "kTo");
   (sym_kTry, "kTry"); (sym_kType, "kType"); (sym_kUnit, "kUnit");
   (sym_kUntil, "kUntil"); (sym_kUses, "kUses"); (sym_kVar, "kVar");
   (sym_kWhile, "kWhile"); (sym_kWith, "kWith"); (sym_kXor, "kXor");
   (sym_root, "root"); (sym_program, "program"); (sym_library, "library");
   (sym_unit, "unit"); (sym_interface, "interface");
   (sym_implementation, "implementation");
   (sym_initialization, "initialization"); (sym_finalization, "finalization");
   (sym__initializationBegin, "initialization");
   (sym_moduleName, "moduleName"); (sym_if, "if"); (sym_ifElse, "ifElse");
   (sym_while, "while"); (sym_repeat, "repeat"); (sym_for, "for");
   (sym_foreach, "foreach"); (sym_exceptionHandler, "exceptionHandler");
   (sym_exceptionElse, "exceptionElse"); (sym_try, "try");
   (sym_caseCase, "caseCase"); (sym_case, "case"); (sym_block, "block");
   (sym_asm, "asm"); (sym_with, "with"); (sym_raise, "raise");
   (sym_statement, "statement"); (sym_goto, "goto");
   (sym_labeledStatement, "labeledStatement"); (sym__statement, "_statement");
   (sym_ifTr, "if"); (sym_ifElseTr, "ifElse"); (sym_whileTr, "while");
   (sym_repeatTr, "repeat"); (sym_forTr, "for"); (sym_foreachTr, "foreach");
   (sym_exceptionHandlerTr, "exceptionHandler");
   (sym__exceptionHandlersTr, "_exceptionHandlersTr"); (sym_tryTr, "try");
   (sym_caseCaseTr, "caseCase"); (sym_caseTr, "case");
   (sym_blockTr, "blockTr"); (sym_asmTr, "asm"); (sym_withTr, "with");
   (sym_raiseTr, "raise"); (sym_statementTr, "statement");
   (sym_gotoTr, "goto"); (sym_labeledStatementTr, "labeledStatement");
   (sym__statementTr, "_statementTr"); (sym_assignment, "assignment");
   (sym_varAssignDef, "varAssignDef"); (sym_varDef, "varDef");
   (sym_inlineVarStringTyperef, "typeref"); (sym_constDef, "constDef");
   (sym_label, "label"); (sym_caseLabel, "caseLabel");
   (sym__statementsTr, "_statementsTr"); (sym_statementsTr, "statements");
   (sym_asmBody, "asmBody"); (sym__expr, "_expr");
   (sym_exprConditional, "exprConditional"); (sym__ref, "_ref");
   (sym_lambda, "lambda"); (sym_inherited, "inherited");
   (sym_exprDot, "exprDot"); (sym_exprDeref, "exprUnary");
   (sym_exprAs, "exprBinary"); (sym_exprTpl, "exprTpl");
   (sym_exprSubscript, "exprSubscript"); (sym_exprCall, "exprCall");
   (sym_legacyFormat, "legacyFormat"); (sym_exprArgs, "exprArgs");
   (sym__exprIsNot, "_exprIsNot"); (sym_exprBinary, "exprBinary");
   (sym_exprUnary, "exprUnary"); (sym_exprParens, "exprParens");
   (sym_exprBrackets, "exprBrackets"); (sym_type, "type");
   (sym__anonymousRecord, "declClass"); (sym_declSubRange, "declSubRange");
   (sym__subRangeBound, "_subRangeBound"); (sym__subRangeCall, "exprCall");
   (sym__subRangeUnary, "exprUnary"); (sym__subRangeBinary, "exprBinary");
   (sym_typeref, "typeref"); (sym__typeref, "_typeref");
   (sym_typerefDot, "typerefDot"); (sym_typerefTpl, "typerefTpl");
   (sym_typerefPtr, "typerefPtr"); (sym_typerefArgs, "typerefArgs");
   (sym_genericDot, "genericDot"); (sym_genericTpl, "genericTpl");
   (sym__genericName, "_genericName"); (sym_genericArgs, "genericArgs")
  ].

Definition ts_symbol_names_3 : list (ts_symbol * string) :=
  [
   (sym_genericArg, "genericArg");
   (sym__genericKeywordConstraintTyperef, "typeref");
   (sym__literal, "_literal"); (sym_literalString, "literalString");
   (sym__literalString, "_literalString"); (sym_literalChar, "literalChar");
   (sym_literalNumber, "literalNumber"); (sym__literalInt, "_literalInt");
   (sym__literalFloat, "_literalFloat"); (sym_range, "range");
   (aux_sym__definitions, "_definitions"); (sym__definition, "_definition");
   (sym_defProc, "defProc"); (sym__defProcImpl, "_defProcImpl");
   (sym__defProcBody, "_defProcBody"); (sym_declProcFwd, "declProc");
   (sym__visibility, "_visibility"); (aux_sym__declarations, "_declarations");
   (aux_sym__classDeclarations, "_classDeclarations");
   (sym_defaultValue, "defaultValue"); (sym_declUses, "declUses");
   (sym__usesClauseEntry, "_usesClauseEntry");
   (sym__usesModule, "_usesModule"); (sym_ppUsesBlock, "ppUsesBlock");
   (sym_ppUsesBlockWithSemi, "ppUsesBlockWithSemi"); (sym__ppIf, "ppIf");
   (sym__ppElse, "ppElse"); (sym__ppEndIf, "ppEndIf");
   (sym_ppBlock, "ppBlock"); (sym__ppStatementBlock, "ppBlock");
   (sym_declExports, "declExports"); (sym_declTypes, "declTypes");
   (sym_declVars, "declVars"); (sym_declConsts, "declConsts");
   (sym_declType, "declType"); (sym_declProc, "declProc");
   (sym_declVar, "declVar"); (sym_declConst, "declConst");
   (sym_declLabels, "declLabels"); (sym_declLabel, "declLabel");
   (sym_declExport, "declExport"); (sym_declEnum, "declEnum");
   (sym_declEnumValue, "declEnumValue"); (sym_declSet, "declSet");
   (sym_declArray, "declArray"); (sym_arrayOfConstType, "type");
   (sym_arrayOfConstTyperef, "typeref"); (sym_declFile, "declFile");
   (sym_declString, "declString"); (sym_declProcRef, "declProcRef");
   (sym_declMetaClass, "declMetaClass"); (sym_declClass, "declClass");
   (sym_declIntf, "declIntf"); (sym_declHelper, "declHelper");
   (sym_guid, "guid"); (sym__declClass, "_declClass");
   (sym_declSection, "declSection"); (sym_ppDeclSection, "ppDeclSection");
   (aux_sym__declFields, "_declFields"); (sym_declField, "declField");
   (sym_declProp, "declProp"); (sym_declPropArgs, "declPropArgs");
   (sym_declVariant, "declVariant");
   (sym_declVariantClause, "declVariantClause");
   (sym_declVariantField, "declField"); (sym__declProc, "_declProc");
   (sym__declOperator, "_declOperator"); (sym_operatorDot, "genericDot");
   (sym__operatorName, "_operatorName"); (sym_operatorName, "operatorName");
   (sym_declArgs, "declArgs"); (sym_declArg, "declArg");
   (sym__procAttribute, "_procAttribute");
   (sym__procAttributeNoExt, "_procAttributeNoExt");
   (sym__procAttributesPp, "_procAttributesPp");
   (sym_procAttribute, "procAttribute");
   (sym_rttiAttributes, "rttiAttributes"); (sym_procExternal, "procExternal");
   (sym__initializer, "_initializer"); (sym_recInitializer, "recInitializer");
   (sym_recInitializerField, "recInitializerField");
   (sym_arrInitializer, "arrInitializer"); (sym_kEndDot, "kEndDot");
   (sym_kDot, "kDot"); (aux_sym_unit_repeat1, "unit_repeat1");
   (aux_sym_moduleName_repeat1, "moduleName_repeat1");
   (aux_sym_exceptionElse_repeat1, "exceptionElse_repeat1");
   (aux_sym_case_repeat1, "case_repeat1");
   (aux_sym_with_repeat1, "with_repeat1");
   (aux_sym_labeledStatement_repeat1, "labeledStatement_repeat1");
   (aux_sym__exceptionHandlersTr_repeat1, "_exceptionHandlersTr_repeat1");
   (aux_sym_caseLabel_repeat1, "caseLabel_repeat1");
   (aux_sym__statementsTr_repeat1, "_statementsTr_repeat1");
   (aux_sym_asmBody_repeat1, "asmBody_repeat1");
   (aux_sym_exprTpl_repeat1, "exprTpl_repeat1");
   (aux_sym_legacyFormat_repeat1, "legacyFormat_repeat1");
   (aux_sym_exprArgs_repeat1, "exprArgs_repeat1");
   (aux_sym_type_repeat1, "type_repeat1");
   (aux_sym_typerefArgs_repeat1, "typerefArgs_repeat1");
   (aux_sym_genericArgs_repeat1, "genericArgs_repeat1");
   (aux_sym_genericArg_repeat1, "genericArg_repeat1");
   (aux_sym_literalString_repeat1, "literalString_repeat1");
   (aux_sym_defProc_repeat1, "defProc_repeat1");
   (aux_sym__defProcBody_repeat1, "_defProcBody_repeat1");
   (aux_sym_declProcFwd_repeat1, "declProcFwd_repeat1");
   (aux_sym_declUses_repeat1, "declUses_repeat1");
   (aux_sym_ppUsesBlock_repeat1, "ppUsesBlock_repeat1");
   (aux_sym_ppUsesBlock_repeat2, "ppUsesBlock_repeat2");
   (aux_sym_ppUsesBlockWithSemi_repeat1, "ppUsesBlockWithSemi_repeat1");
   (aux_sym_ppBlock_repeat1, "ppBlock_repeat1");
   (aux_sym_ppBlock_repeat2, "ppBlock_repeat2");
   (aux_sym__ppStatementBlock_repeat1, "_ppStatementBlock_repeat1");
   (aux_sym__ppStatementBlock_repeat2, "_ppStatementBlock_repeat2");
   (aux_sym_declExports_repeat1, "declExports_repeat1");
   (aux_sym_declTypes_repeat1, "declTypes_repeat1");
   (aux_sym_declVars_repeat1, "declVars_repeat1");
   (aux_sym_declConsts_repeat1, "declConsts_repeat1");
   (aux_sym_declVar_repeat1, "declVar_repeat1");
   (aux_sym_declVar_repeat2, "declVar_repeat2");
   (aux_sym_declLabels_repeat1, "declLabels_repeat1");
   (aux_sym_declExport_repeat1, "declExport_repeat1");
   (aux_sym_declEnum_repeat1, "declEnum_repeat1");
   (aux_sym_declArray_repeat1, "declArray_repeat1");
   (aux_sym_declClass_repeat1, "declClass_repeat1");
   (aux_sym__declClass_repeat1, "_declClass_repeat1");
   (aux_sym_declProp_repeat1, "declProp_repeat1");
   (aux_sym_declProp_repeat2, "declProp_repeat2");
   (aux_sym_declPropArgs_repeat1, "declPropArgs_repeat1");
   (aux_sym_declVariant_repeat1, "declVariant_repeat1");
   (aux_sym_declVariantClause_repeat1, "declVariantClause_repeat1");
   (aux_sym__declProc_repeat1, "_declProc_repeat1");
   (aux_sym__procAttribute_repeat1, "_procAttribute_repeat1");
   (aux_sym__procAttributeNoExt_repeat1, "_procAttributeNoExt_repeat1");
   (aux_sym__procAttributeNoExt_repeat2, "_procAttributeNoExt_repeat2");
   (aux_sym__procAttributesPp_repeat1, "_procAttributesPp_repeat1");
   (aux_sym__procAttributesPp_repeat2, "_procAttributesPp_repeat2");
   (aux_sym_rttiAttributes_repeat1, "rttiAttributes_repeat1");
   (aux_sym_rttiAttributes_repeat2, "rttiAttributes_repeat2");
   (aux_sym_recInitializer_repeat1, "recInitializer_repeat1");
   (aux_sym_arrInitializer_repeat1, "arrInitializer_repeat1")
  ].

(** The names of the symbols. *)
Definition ts_symbol_names : list (ts_symbol * string) :=
  ts_symbol_names_1 ++ ts_symbol_names_2 ++ ts_symbol_names_3.

(** ** Public symbols *)

Definition ts_symbol_map_1 : list (ts_symbol * ts_symbol) :=
  [
   (ts_builtin_sym_end, ts_builtin_sym_end);
   (aux_sym_asmBody_token1, aux_sym_asmBody_token1);
   (anon_sym_SEMI, anon_sym_SEMI); (anon_sym_COLON, anon_sym_COLON);
   (anon_sym_COMMA, anon_sym_COMMA);
   (aux_sym_asmBody_token2, aux_sym_asmBody_token2);
   (aux_sym_asmBody_token3, aux_sym_asmBody_token3);
   (anon_sym_LBRACK, anon_sym_LBRACK); (anon_sym_RBRACK, anon_sym_RBRACK);
   (anon_sym_LPAREN, anon_sym_LPAREN); (anon_sym_RPAREN, anon_sym_RPAREN);
   (anon_sym_DOT_DOT, anon_sym_DOT_DOT);
   (aux_sym__literalString_token1, aux_sym__literalString_token1);
   (anon_sym_POUND, anon_sym_POUND);
   (aux_sym__literalInt_token1, aux_sym__literalInt_token1);
   (aux_sym__literalInt_token2, aux_sym__literalInt_token2);
   (aux_sym__literalInt_token3, aux_sym__literalInt_token3);
   (aux_sym__literalFloat_token1, aux_sym__literalFloat_token1);
   (aux_sym_ppUsesBlock_token1, aux_sym_ppUsesBlock_token1);
   (aux_sym_ppUsesBlock_token2, aux_sym_ppUsesBlock_token2);
   (aux_sym_ppUsesBlock_token3, aux_sym_ppUsesBlock_token3);
   (anon_sym_DOT, anon_sym_DOT); (sym_kLt, sym_kLt); (sym_kEq, sym_kEq);
   (sym_kNeq, sym_kNeq); (sym_kGt, sym_kGt); (sym_kLte, sym_kLte);
   (sym_kGte, sym_kGte); (sym_kAdd, sym_kAdd); (sym_kSub, sym_kSub);
   (sym_kMul, sym_kMul); (sym_kFdiv, sym_kFdiv); (sym_kAt, sym_kAt);
   (sym_kHat, sym_kHat); (sym_kAssign, sym_kAssign);
   (sym_kAssignAdd, sym_kAssignAdd); (sym_kAssignSub, sym_kAssignSub);
   (sym_kAssignMul, sym_kAssignMul); (sym_kAssignDiv, sym_kAssignDiv);
   (sym_kTrue, sym_kTrue); (sym_kFalse, sym_kFalse);
   (sym_labelNumber, sym_labelNumber); (sym__space, sym__space);
   (sym_ppDirective, sym_ppDirective); (sym_comment, sym_comment);
   (sym_ppFragmentExpr, sym_ppFragmentExpr);
   (sym_ppFragmentStmt, sym_ppFragmentStmt);
   (sym__literalStringMultiline, sym__literalStringMultiline);
   (sym_identifier, sym_identifier); (sym_kConstref, sym_kConstref);
   (sym_kOut, sym_kOut); (sym_kAbsolute, sym_kAbsolute);
   (sym_kRead, sym_kRead); (sym_kWrite, sym_kWrite);
   (sym_kImplements, sym_kImplements); (sym_kDefault, sym_kDefault);
   (sym_kNodefault, sym_kNodefault); (sym_kStored, sym_kStored);
   (sym_kIndex, sym_kIndex); (sym_kDispId, sym_kDispId);
   (sym_kObjcclass, sym_kObjcclass); (sym_kObjccategory, sym_kObjccategory);
   (sym_kObjcprotocol, sym_kObjcprotocol); (sym_kHelper, sym_kHelper);
   (sym_kGeneric, sym_kGeneric); (sym_kSpecialize, sym_kSpecialize);
   (sym_kOtherwise, sym_kOtherwise); (sym_kRaiseAt, sym_kRaiseAt);
   (sym_kOn, sym_kOn); (sym_kOperator, sym_kOperator);
   (sym_kReference, sym_kReference); (sym_kPublished, sym_kPublished);
   (sym_kPublic, sym_kPublic); (sym_kProtected, sym_kProtected);
   (sym_kPrivate, sym_kPrivate); (sym_kStrict, sym_kStrict);
   (sym_kRequired, sym_kRequired); (sym_kOptional, sym_kOptional);
   (sym_kForward, sym_kForward); (sym_kStatic, sym_kStatic);
   (sym_kVirtual, sym_kVirtual); (sym_kAbstract, sym_kAbstract);
   (sym_kSealed, sym_kSealed); (sym_kDynamic, sym_kDynamic);
   (sym_kOverride, sym_kOverride); (sym_kOverload, sym_kOverload);
   (sym_kReintroduce, sym_kReintroduce); (sym_kStdcall, sym_kStdcall);
   (sym_kCdecl, sym_kCdecl); (sym_kCppdecl, sym_kCppdecl);
   (sym_kPascal, sym_kPascal); (sym_kRegister, sym_kRegister);
   (sym_kMwpascal, sym_kMwpascal); (sym_kExternal, sym_kExternal);
   (sym_kName, sym_kName); (sym_kMessage, sym_kMessage);
   (sym_kDeprecated, sym_kDeprecated); (sym_kExperimental, sym_kExperimental);
   (sym_kPlatform, sym_kPlatform); (sym_kUnimplemented, sym_kUnimplemented);
   (sym_kCvar, sym_kCvar); (sym_kExport, sym_kExport); (sym_kFar, sym_kFar);
   (sym_kNear, sym_kNear); (sym_kSafecall, sym_kSafecall);
   (sym_kAssembler, sym_kAssembler); (sym_kNostackframe, sym_kNostackframe);
   (sym_kInterrupt, sym_kInterrupt); (sym_kNoreturn, sym_kNoreturn);
   (sym_kIocheck, sym_kIocheck); (sym_kLocal, sym_kLocal);
   (sym_kHardfloat, sym_kHardfloat); (sym_kSoftfloat, sym_kSoftfloat);
   (sym_kMs_abi_default, sym_kMs_abi_default);
   (sym_kMs_abi_cdecl, sym_kMs_abi_cdecl);
   (sym_kSaveregisters, sym_kSaveregisters);
   (sym_kSysv_abi_default, sym_kSysv_abi_default);
   (sym_kSysv_abi_cdecl, sym_kSysv_abi_cdecl);
   (sym_kVectorcall, sym_kVectorcall); (sym_kVarargs, sym_kVarargs);
   (sym_kWinapi, sym_kWinapi); (sym_kAlias, sym_kAlias);
   (sym_kDelayed, sym_kDelayed); (sym_kAnd, sym_kAnd);
   (sym_kArray, sym_kArray); (sym_kAs, sym_kAs); (sym_kAsm, sym_kAsm);
   (sym_kBegin, sym_kBegin); (sym_kCase, sym_kCase); (sym_kClass, sym_kClass);
   (sym_kConst, sym_kConst); (sym_kConstructor, sym_kConstructor);
   (sym_kDestructor, sym_kDestructor);
   (sym_kDispInterface, sym_kDispInterface); (sym_kDiv, sym_kDiv);
   (sym_kDo, sym_kDo); (sym_kDownto, sym_kDownto); (sym_kElse, sym_kElse);
   (sym_kEnd, sym_kEnd); (sym_kExcept, sym_kExcept)
  ].

Definition ts_symbol_map_2 : list (ts_symbol * ts_symbol) :=
  [
   (sym_kExports, sym_kExports); (sym_kFile, sym_kFile);
   (sym_kFinalization, sym_kFinalization); (sym_kFinally, sym_kFinally);
   (sym_kFor, sym_kFor); (sym_kFunction, sym_kFunction);
   (sym_kGoto, sym_kGoto); (sym_kIf, sym_kIf);
   (sym_kImplementation, sym_kImplementation); (sym_kIn, sym_kIn);
   (sym_kInherited, sym_kInherited);
   (sym_kInitialization, sym_kInitialization); (sym_kInline, sym_kInline);
   (sym_kInterface, sym_kInterface); (sym_kIs, sym_kIs);
   (sym_kLabel, sym_kLabel); (sym_kLibrary, sym_kLibrary);
   (sym_kMod, sym_kMod); (sym_kNil, sym_kNil); (sym_kNot, sym_kNot);
   (sym_kObject, sym_kObject); (sym_kOf, sym_kOf); (sym_kOr, sym_kOr);
   (sym_kPacked, sym_kPacked); (sym_kProcedure, sym_kProcedure);
   (sym_kProgram, sym_kProgram); (sym_kProperty, sym_kProperty);
   (sym_kRaise, sym_kRaise); (sym_kRecord, sym_kRecord);
   (sym_kRepeat, sym_kRepeat); (sym_kResourcestring, sym_kResourcestring);
   (sym_kSet, sym_kSet); (sym_kShl, sym_kShl); (sym_kShr, sym_kShr);
   (sym_kString, sym_kString); (sym_kThen, sym_kThen);
   (sym_kThreadvar, sym_kThreadvar); (sym_kTo, sym_kTo); (sym_kTry, sym_kTry);
   (sym_kType, sym_kType); (sym_kUnit, sym_kUnit); (sym_kUntil, sym_kUntil);
   (sym_kUses, sym_kUses); (sym_kVar, sym_kVar); (sym_kWhile, sym_kWhile);
   (sym_kWith, sym_kWith); (sym_kXor, sym_kXor); (sym_root, sym_root);
   (sym_program, sym_program); (sym_library, sym_library);
   (sym_unit, sym_unit); (sym_interface, sym_interface);
   (sym_implementation, sym_implementation);
   (sym_initialization, sym_initialization);
   (sym_finalization, sym_finalization);
   (sym__initializationBegin, sym_initialization);
   (sym_moduleName, sym_moduleName); (sym_if, sym_if);
   (sym_ifElse, sym_ifElse); (sym_while, sym_while); (sym_repeat, sym_repeat);
   (sym_for, sym_for); (sym_foreach, sym_foreach);
   (sym_exceptionHandler, sym_exceptionHandler);
   (sym_exceptionElse, sym_exceptionElse); (sym_try, sym_try);
   (sym_caseCase, sym_caseCase); (sym_case, sym_case); (sym_block, sym_block);
   (sym_asm, sym_asm); (sym_with, sym_with); (sym_raise, sym_raise);
   (sym_statement, sym_statement); (sym_goto, sym_goto);
   (sym_labeledStatement, sym_labeledStatement);
   (sym__statement, sym__statement); (sym_ifTr, sym_if);
   (sym_ifElseTr, sym_ifElse); (sym_whileTr, sym_while);
   (sym_repeatTr, sym_repeat); (sym_forTr, sym_for);
   (sym_foreachTr, sym_foreach);
   (sym_exceptionHandlerTr, sym_exceptionHandler);
   (sym__exceptionHandlersTr, sym__exceptionHandlersTr); (sym_tryTr, sym_try);
   (sym_caseCaseTr, sym_caseCase); (sym_caseTr, sym_case);
   (sym_blockTr, sym_blockTr); (sym_asmTr, sym_asm); (sym_withTr, sym_with);
   (sym_raiseTr, sym_raise); (sym_statementTr, sym_statement);
   (sym_gotoTr, sym_goto); (sym_labeledStatementTr, sym_labeledStatement);
   (sym__statementTr, sym__statementTr); (sym_assignment, sym_assignment);
   (sym_varAssignDef, sym_varAssignDef); (sym_varDef, sym_varDef);
   (sym_inlineVarStringTyperef, sym_typeref); (sym_constDef, sym_constDef);
   (sym_label, sym_label); (sym_caseLabel, sym_caseLabel);
   (sym__statementsTr, sym__statementsTr);
   (sym_statementsTr, sym_statementsTr); (sym_asmBody, sym_asmBody);
   (sym__expr, sym__expr); (sym_exprConditional, sym_exprConditional);
   (sym__ref, sym__ref); (sym_lambda, sym_lambda);
   (sym_inherited, sym_inherited); (sym_exprDot, sym_exprDot);
   (sym_exprDeref, sym_exprUnary); (sym_exprAs, sym_exprBinary);
   (sym_exprTpl, sym_exprTpl); (sym_exprSubscript, sym_exprSubscript);
   (sym_exprCall, sym_exprCall); (sym_legacyFormat, sym_legacyFormat);
   (sym_exprArgs, sym_exprArgs); (sym__exprIsNot, sym__exprIsNot);
   (sym_exprBinary, sym_exprBinary); (sym_exprUnary, sym_exprUnary);
   (sym_exprParens, sym_exprParens); (sym_exprBrackets, sym_exprBrackets);
   (sym_type, sym_type); (sym__anonymousRecord, sym_declClass);
   (sym_declSubRange, sym_declSubRange);
   (sym__subRangeBound, sym__subRangeBound);
   (sym__subRangeCall, sym_exprCall); (sym__subRangeUnary, sym_exprUnary);
   (sym__subRangeBinary, sym_exprBinary); (sym_typeref, sym_typeref);
   (sym__typeref, sym__typeref); (sym_typerefDot, sym_typerefDot);
   (sym_typerefTpl, sym_typerefTpl); (sym_typerefPtr, sym_typerefPtr);
   (sym_typerefArgs, sym_typerefArgs); (sym_genericDot, sym_genericDot);
   (sym_genericTpl, sym_genericTpl); (sym__genericName, sym__genericName);
   (sym_genericArgs, sym_genericArgs)
  ].

Definition ts_symbol_map_3 : list (ts_symbol * ts_symbol) :=
  [
   (sym_genericArg, sym_genericArg);
   (sym__genericKeywordConstraintTyperef, sym_typeref);
   (sym__literal, sym__literal); (sym_literalString, sym_literalString);
   (sym__literalString, sym__literalString);
   (sym_literalChar, sym_literalChar); (sym_literalNumber, sym_literalNumber);
   (sym__literalInt, sym__literalInt); (sym__literalFloat, sym__literalFloat);
   (sym_range, sym_range); (aux_sym__definitions, aux_sym__definitions);
   (sym__definition, sym__definition); (sym_defProc, sym_defProc);
   (sym__defProcImpl, sym__defProcImpl); (sym__defProcBody, sym__defProcBody);
   (sym_declProcFwd, sym_declProc); (sym__visibility, sym__visibility);
   (aux_sym__declarations, aux_sym__declarations);
   (aux_sym__classDeclarations, aux_sym__classDeclarations);
   (sym_defaultValue, sym_defaultValue); (sym_declUses, sym_declUses);
   (sym__usesClauseEntry, sym__usesClauseEntry);
   (sym__usesModule, sym__usesModule); (sym_ppUsesBlock, sym_ppUsesBlock);
   (sym_ppUsesBlockWithSemi, sym_ppUsesBlockWithSemi); (sym__ppIf, sym__ppIf);
   (sym__ppElse, sym__ppElse); (sym__ppEndIf, sym__ppEndIf);
   (sym_ppBlock, sym_ppBlock); (sym__ppStatementBlock, sym_ppBlock);
   (sym_declExports, sym_declExports); (sym_declTypes, sym_declTypes);
   (sym_declVars, sym_declVars); (sym_declConsts, sym_declConsts);
   (sym_declType, sym_declType); (sym_declProc, sym_declProc);
   (sym_declVar, sym_declVar); (sym_declConst, sym_declConst);
   (sym_declLabels, sym_declLabels); (sym_declLabel, sym_declLabel);
   (sym_declExport, sym_declExport); (sym_declEnum, sym_declEnum);
   (sym_declEnumValue, sym_declEnumValue); (sym_declSet, sym_declSet);
   (sym_declArray, sym_declArray); (sym_arrayOfConstType, sym_type);
   (sym_arrayOfConstTyperef, sym_typeref); (sym_declFile, sym_declFile);
   (sym_declString, sym_declString); (sym_declProcRef, sym_declProcRef);
   (sym_declMetaClass, sym_declMetaClass); (sym_declClass, sym_declClass);
   (sym_declIntf, sym_declIntf); (sym_declHelper, sym_declHelper);
   (sym_guid, sym_guid); (sym__declClass, sym__declClass);
   (sym_declSection, sym_declSection); (sym_ppDeclSection, sym_ppDeclSection);
   (aux_sym__declFields, aux_sym__declFields); (sym_declField, sym_declField);
   (sym_declProp, sym_declProp); (sym_declPropArgs, sym_declPropArgs);
   (sym_declVariant, sym_declVariant);
   (sym_declVariantClause, sym_declVariantClause);
   (sym_declVariantField, sym_declField); (sym__declProc, sym__declProc);
   (sym__declOperator, sym__declOperator); (sym_operatorDot, sym_genericDot);
   (sym__operatorName, sym__operatorName);
   (sym_operatorName, sym_operatorName); (sym_declArgs, sym_declArgs);
   (sym_declArg, sym_declArg); (sym__procAttribute, sym__procAttribute);
   (sym__procAttributeNoExt, sym__procAttributeNoExt);
   (sym__procAttributesPp, sym__procAttributesPp);
   (sym_procAttribute, sym_procAttribute);
   (sym_rttiAttributes, sym_rttiAttributes);
   (sym_procExternal, sym_procExternal); (sym__initializer, sym__initializer);
   (sym_recInitializer, sym_recInitializer);
   (sym_recInitializerField, sym_recInitializerField);
   (sym_arrInitializer, sym_arrInitializer); (sym_kEndDot, sym_kEndDot);
   (sym_kDot, sym_kDot); (aux_sym_unit_repeat1, aux_sym_unit_repeat1);
   (aux_sym_moduleName_repeat1, aux_sym_moduleName_repeat1);
   (aux_sym_exceptionElse_repeat1, aux_sym_exceptionElse_repeat1);
   (aux_sym_case_repeat1, aux_sym_case_repeat1);
   (aux_sym_with_repeat1, aux_sym_with_repeat1);
   (aux_sym_labeledStatement_repeat1, aux_sym_labeledStatement_repeat1);
   (aux_sym__exceptionHandlersTr_repeat1, aux_sym__exceptionHandlersTr_repeat1);
   (aux_sym_caseLabel_repeat1, aux_sym_caseLabel_repeat1);
   (aux_sym__statementsTr_repeat1, aux_sym__statementsTr_repeat1);
   (aux_sym_asmBody_repeat1, aux_sym_asmBody_repeat1);
   (aux_sym_exprTpl_repeat1, aux_sym_exprTpl_repeat1);
   (aux_sym_legacyFormat_repeat1, aux_sym_legacyFormat_repeat1);
   (aux_sym_exprArgs_repeat1, aux_sym_exprArgs_repeat1);
   (aux_sym_type_repeat1, aux_sym_type_repeat1);
   (aux_sym_typerefArgs_repeat1, aux_sym_typerefArgs_repeat1);
   (aux_sym_genericArgs_repeat1, aux_sym_genericArgs_repeat1);
   (aux_sym_genericArg_repeat1, aux_sym_genericArg_repeat1);
   (aux_sym_literalString_repeat1, aux_sym_literalString_repeat1);
   (aux_sym_defProc_repeat1, aux_sym_defProc_repeat1);
   (aux_sym__defProcBody_repeat1, aux_sym__defProcBody_repeat1);
   (aux_sym_declProcFwd_repeat1, aux_sym_declProcFwd_repeat1);
   (aux_sym_declUses_repeat1, aux_sym_declUses_repeat1);
   (aux_sym_ppUsesBlock_repeat1, aux_sym_ppUsesBlock_repeat1);
   (aux_sym_ppUsesBlock_repeat2, aux_sym_ppUsesBlock_repeat2);
   (aux_sym_ppUsesBlockWithSemi_repeat1, aux_sym_ppUsesBlockWithSemi_repeat1);
   (aux_sym_ppBlock_repeat1, aux_sym_ppBlock_repeat1);
   (aux_sym_ppBlock_repeat2, aux_sym_ppBlock_repeat2);
   (aux_sym__ppStatementBlock_repeat1, aux_sym__ppStatementBlock_repeat1);
   (aux_sym__ppStatementBlock_repeat2, aux_sym__ppStatementBlock_repeat2);
   (aux_sym_declExports_repeat1, aux_sym_declExports_repeat1);
   (aux_sym_declTypes_repeat1, aux_sym_declTypes_repeat1);
   (aux_sym_declVars_repeat1, aux_sym_declVars_repeat1);
   (aux_sym_declConsts_repeat1, aux_sym_declConsts_repeat1);
   (aux_sym_declVar_repeat1, aux_sym_declVar_repeat1);
   (aux_sym_declVar_repeat2, aux_sym_declVar_repeat2);
   (aux_sym_declLabels_repeat1, aux_sym_declLabels_repeat1);
   (aux_sym_declExport_repeat1, aux_sym_declExport_repeat1);
   (aux_sym_declEnum_repeat1, aux_sym_declEnum_repeat1);
   (aux_sym_declArray_repeat1, aux_sym_declArray_repeat1);
   (aux_sym_declClass_repeat1, aux_sym_declClass_repeat1);
   (aux_sym__declClass_repeat1, aux_sym__declClass_repeat1);
   (aux_sym_declProp_repeat1, aux_sym_declProp_repeat1);
   (aux_sym_declProp_repeat2, aux_sym_declProp_repeat2);
   (aux_sym_declPropArgs_repeat1, aux_sym_declPropArgs_repeat1);
   (aux_sym_declVariant_repeat1, aux_sym_declVariant_repeat1);
   (aux_sym_declVariantClause_repeat1, aux_sym_declVariantClause_repeat1);
   (aux_sym__declProc_repeat1, aux_sym__declProc_repeat1);
   (aux_sym__procAttribute_repeat1, aux_sym__procAttribute_repeat1);
   (aux_sym__procAttributeNoExt_repeat1, aux_sym__procAttributeNoExt_repeat1);
   (aux_sym__procAttributeNoExt_repeat2, aux_sym__procAttributeNoExt_repeat2);
   (aux_sym__procAttributesPp_repeat1, aux_sym__procAttributesPp_repeat1);
   (aux_sym__procAttributesPp_repeat2, aux_sym__procAttributesPp_repeat2);
   (aux_sym_rttiAttributes_repeat1, aux_sym_rttiAttributes_repeat1);
   (aux_sym_rttiAttributes_repeat2, aux_sym_rttiAttributes_repeat2);
   (aux_sym_recInitializer_repeat1, aux_sym_recInitializer_repeat1);
   (aux_sym_arrInitializer_repeat1, aux_sym_arrInitializer_repeat1)
  ].

(** The symbol under which a symbol is shown in the tree. *)
Definition ts_symbol_map : list (ts_symbol * ts_symbol) :=
  ts_symbol_map_1 ++ ts_symbol_map_2 ++ ts_symbol_map_3.

(** ** Metadata *)

Definition ts_symbol_metadata_1 : list (ts_symbol * TSSymbolMetadata) :=
  [
   (ts_builtin_sym_end, MkMetadata false true false);
   (aux_sym_asmBody_token1, MkMetadata false false false);
   (anon_sym_SEMI, MkMetadata true false false);
   (anon_sym_COLON, MkMetadata true false false);
   (anon_sym_COMMA, MkMetadata true false false);
   (aux_sym_asmBody_token2, MkMetadata false false false);
   (aux_sym_asmBody_token3, MkMetadata false false false);
   (anon_sym_LBRACK, MkMetadata true false false);
   (anon_sym_RBRACK, MkMetadata true false false);
   (anon_sym_LPAREN, MkMetadata true false false);
   (anon_sym_RPAREN, MkMetadata true false false);
   (anon_sym_DOT_DOT, MkMetadata true false false);
   (aux_sym__literalString_token1, MkMetadata false false false);
   (anon_sym_POUND, MkMetadata true false false);
   (aux_sym__literalInt_token1, MkMetadata false false false);
   (aux_sym__literalInt_token2, MkMetadata false false false);
   (aux_sym__literalInt_token3, MkMetadata false false false);
   (aux_sym__literalFloat_token1, MkMetadata false false false);
   (aux_sym_ppUsesBlock_token1, MkMetadata false false false);
   (aux_sym_ppUsesBlock_token2, MkMetadata false false false);
   (aux_sym_ppUsesBlock_token3, MkMetadata false false false);
   (anon_sym_DOT, MkMetadata true false false);
   (sym_kLt, MkMetadata true true false);
   (sym_kEq, MkMetadata true true false);
   (sym_kNeq, MkMetadata true true false);
   (sym_kGt, MkMetadata true true false);
   (sym_kLte, MkMetadata true true false);
   (sym_kGte, MkMetadata true true false);
   (sym_kAdd, MkMetadata true true false);
   (sym_kSub, MkMetadata true true false);
   (sym_kMul, MkMetadata true true false);
   (sym_kFdiv, MkMetadata true true false);
   (sym_kAt, MkMetadata true true false);
   (sym_kHat, MkMetadata true true false);
   (sym_kAssign, MkMetadata true true false);
   (sym_kAssignAdd, MkMetadata true true false)
  ].

Definition ts_symbol_metadata_2 : list (ts_symbol * TSSymbolMetadata) :=
  [
   (sym_kAssignSub, MkMetadata true true false);
   (sym_kAssignMul, MkMetadata true true false);
   (sym_kAssignDiv, MkMetadata true true false);
   (sym_kTrue, MkMetadata true true false);
   (sym_kFalse, MkMetadata true true false);
   (sym_labelNumber, MkMetadata true true false);
   (sym__space, MkMetadata false true false);
   (sym_ppDirective, MkMetadata true true false);
   (sym_comment, MkMetadata true true false);
   (sym_ppFragmentExpr, MkMetadata true true false);
   (sym_ppFragmentStmt, MkMetadata true true false);
   (sym__literalStringMultiline, MkMetadata false true false);
   (sym_identifier, MkMetadata true true false);
   (sym_kConstref, MkMetadata true true false);
   (sym_kOut, MkMetadata true true false);
   (sym_kAbsolute, MkMetadata true true false);
   (sym_kRead, MkMetadata true true false);
   (sym_kWrite, MkMetadata true true false);
   (sym_kImplements, MkMetadata true true false);
   (sym_kDefault, MkMetadata true true false);
   (sym_kNodefault, MkMetadata true true false);
   (sym_kStored, MkMetadata true true false);
   (sym_kIndex, MkMetadata true true false);
   (sym_kDispId, MkMetadata true true false);
   (sym_kObjcclass, MkMetadata true true false);
   (sym_kObjccategory, MkMetadata true true false);
   (sym_kObjcprotocol, MkMetadata true true false);
   (sym_kHelper, MkMetadata true true false);
   (sym_kGeneric, MkMetadata true true false);
   (sym_kSpecialize, MkMetadata true true false);
   (sym_kOtherwise, MkMetadata true true false);
   (sym_kRaiseAt, MkMetadata true true false);
   (sym_kOn, MkMetadata true true false);
   (sym_kOperator, MkMetadata true true false);
   (sym_kReference, MkMetadata true true false);
   (sym_kPublished, MkMetadata true true false)
  ].

Definition ts_symbol_metadata_3 : list (ts_symbol * TSSymbolMetadata) :=
  [
   (sym_kPublic, MkMetadata true true false);
   (sym_kProtected, MkMetadata true true false);
   (sym_kPrivate, MkMetadata true true false);
   (sym_kStrict, MkMetadata true true false);
   (sym_kRequired, MkMetadata true true false);
   (sym_kOptional, MkMetadata true true false);
   (sym_kForward, MkMetadata true true false);
   (sym_kStatic, MkMetadata true true false);
   (sym_kVirtual, MkMetadata true true false);
   (sym_kAbstract, MkMetadata true true false);
   (sym_kSealed, MkMetadata true true false);
   (sym_kDynamic, MkMetadata true true false);
   (sym_kOverride, MkMetadata true true false);
   (sym_kOverload, MkMetadata true true false);
   (sym_kReintroduce, MkMetadata true true false);
   (sym_kStdcall, MkMetadata true true false);
   (sym_kCdecl, MkMetadata true true false);
   (sym_kCppdecl, MkMetadata true true false);
   (sym_kPascal, MkMetadata true true false);
   (sym_kRegister, MkMetadata true true false);
   (sym_kMwpascal, MkMetadata true true false);
   (sym_kExternal, MkMetadata true true false);
   (sym_kName, MkMetadata true true false);
   (sym_kMessage, MkMetadata true true false);
   (sym_kDeprecated, MkMetadata true true false);
   (sym_kExperimental, MkMetadata true true false);
   (sym_kPlatform, MkMetadata true true false);
   (sym_kUnimplemented, MkMetadata true true false);
   (sym_kCvar, MkMetadata true true false);
   (sym_kExport, MkMetadata true true false);
   (sym_kFar, MkMetadata true true false);
   (sym_kNear, MkMetadata true true false);
   (sym_kSafecall, MkMetadata true true false);
   (sym_kAssembler, MkMetadata true true false);
   (sym_kNostackframe, MkMetadata true true false);
   (sym_kInterrupt, MkMetadata true true false)
  ].

Definition ts_symbol_metadata_4 : list (ts_symbol * TSSymbolMetadata) :=
  [
   (sym_kNoreturn, MkMetadata true true false);
   (sym_kIocheck, MkMetadata true true false);
   (sym_kLocal, MkMetadata true true false);
   (sym_kHardfloat, MkMetadata true true false);
   (sym_kSoftfloat, MkMetadata true true false);
   (sym_kMs_abi_default, MkMetadata true true false);
   (sym_kMs_abi_cdecl, MkMetadata true true false);
   (sym_kSaveregisters, MkMetadata true true false);
   (sym_kSysv_abi_default, MkMetadata true true false);
   (sym_kSysv_abi_cdecl, MkMetadata true true false);
   (sym_kVectorcall, MkMetadata true true false);
   (sym_kVarargs, MkMetadata true true false);
   (sym_kWinapi, MkMetadata true true false);
   (sym_kAlias, MkMetadata true true false);
   (sym_kDelayed, MkMetadata true true false);
   (sym_kAnd, MkMetadata true true false);
   (sym_kArray, MkMetadata true true false);
   (sym_kAs, MkMetadata true true false);
   (sym_kAsm, MkMetadata true true false);
   (sym_kBegin, MkMetadata true true false);
   (sym_kCase, MkMetadata true true false);
   (sym_kClass, MkMetadata true true false);
   (sym_kConst, MkMetadata true true false);
   (sym_kConstructor, MkMetadata true true false);
   (sym_kDestructor, MkMetadata true true false);
   (sym_kDispInterface, MkMetadata true true false);
   (sym_kDiv, MkMetadata true true false);
   (sym_kDo, MkMetadata true true false);
   (sym_kDownto, MkMetadata true true false);
   (sym_kElse, MkMetadata true true false);
   (sym_kEnd, MkMetadata true true false);
   (sym_kExcept, MkMetadata true true false);
   (sym_kExports, MkMetadata true true false);
   (sym_kFile, MkMetadata true true false);
   (sym_kFinalization, MkMetadata true true false);
   (sym_kFinally, MkMetadata true true false)
  ].

Definition ts_symbol_metadata_5 : list (ts_symbol * TSSymbolMetadata) :=
  [
   (sym_kFor, MkMetadata true true false);
   (sym_kFunction, MkMetadata true true false);
   (sym_kGoto, MkMetadata true true false);
   (sym_kIf, MkMetadata true true false);
   (sym_kImplementation, MkMetadata true true false);
   (sym_kIn, MkMetadata true true false);
   (sym_kInherited, MkMetadata true true false);
   (sym_kInitialization, MkMetadata true true false);
   (sym_kInline, MkMetadata true true false);
   (sym_kInterface, MkMetadata true true false);
   (sym_kIs, MkMetadata true true false);
   (sym_kLabel, MkMetadata true true false);
   (sym_kLibrary, MkMetadata true true false);
   (sym_kMod, MkMetadata true true false);
   (sym_kNil, MkMetadata true true false);
   (sym_kNot, MkMetadata true true false);
   (sym_kObject, MkMetadata true true false);
   (sym_kOf, MkMetadata true true false);
   (sym_kOr, MkMetadata true true false);
   (sym_kPacked, MkMetadata true true false);
   (sym_kProcedure, MkMetadata true true false);
   (sym_kProgram, MkMetadata true true false);
   (sym_kProperty, MkMetadata true true false);
   (sym_kRaise, MkMetadata true true false);
   (sym_kRecord, MkMetadata true true false);
   (sym_kRepeat, MkMetadata true true false);
   (sym_kResourcestring, MkMetadata true true false);
   (sym_kSet, MkMetadata true true false);
   (sym_kShl, MkMetadata true true false);
   (sym_kShr, MkMetadata true true false);
   (sym_kString, MkMetadata true true false);
   (sym_kThen, MkMetadata true true false);
   (sym_kThreadvar, MkMetadata true true false);
   (sym_kTo, MkMetadata true true false);
   (sym_kTry, MkMetadata true true false);
   (sym_kType, MkMetadata true true false)
  ].

Definition ts_symbol_metadata_6 : list (ts_symbol * TSSymbolMetadata) :=
  [
   (sym_kUnit, MkMetadata true true false);
   (sym_kUntil, MkMetadata true true false);
   (sym_kUses, MkMetadata true true false);
   (sym_kVar, MkMetadata true true false);
   (sym_kWhile, MkMetadata true true false);
   (sym_kWith, MkMetadata true true false);
   (sym_kXor, MkMetadata true true false);
   (sym_root, MkMetadata true true false);
   (sym_program, MkMetadata true true false);
   (sym_library, MkMetadata true true false);
   (sym_unit, MkMetadata true true false);
   (sym_interface, MkMetadata true true false);
   (sym_implementation, MkMetadata true true false);
   (sym_initialization, MkMetadata true true false);
   (sym_finalization, MkMetadata true true false);
   (sym__initializationBegin, MkMetadata true true false);
   (sym_moduleName, MkMetadata true true false);
   (sym_if, MkMetadata true true false);
   (sym_ifElse, MkMetadata true true false);
   (sym_while, MkMetadata true true false);
   (sym_repeat, MkMetadata true true false);
   (sym_for, MkMetadata true true false);
   (sym_foreach, MkMetadata true true false);
   (sym_exceptionHandler, MkMetadata true true false);
   (sym_exceptionElse, MkMetadata true true false);
   (sym_try, MkMetadata true true false);
   (sym_caseCase, MkMetadata true true false);
   (sym_case, MkMetadata true true false);
   (sym_block, MkMetadata true true false);
   (sym_asm, MkMetadata true true false);
   (sym_with, MkMetadata true true false);
   (sym_raise, MkMetadata true true false);
   (sym_statement, MkMetadata true true false);
   (sym_goto, MkMetadata true true false);
   (sym_labeledStatement, MkMetadata true true false);
   (sym__statement, MkMetadata false true false)
  ].

Definition ts_symbol_metadata_7 : list (ts_symbol * TSSymbolMetadata) :=
  [
   (sym_ifTr, MkMetadata true true false);
   (sym_ifElseTr, MkMetadata true true false);
   (sym_whileTr, MkMetadata true true false);
   (sym_repeatTr, MkMetadata true true false);
   (sym_forTr, MkMetadata true true false);
   (sym_foreachTr, MkMetadata true true false);
   (sym_exceptionHandlerTr, MkMetadata true true false);
   (sym__exceptionHandlersTr, MkMetadata false true false);
   (sym_tryTr, MkMetadata true true false);
   (sym_caseCaseTr, MkMetadata true true false);
   (sym_caseTr, MkMetadata true true false);
   (sym_blockTr, MkMetadata true true false);
   (sym_asmTr, MkMetadata true true false);
   (sym_withTr, MkMetadata true true false);
   (sym_raiseTr, MkMetadata true true false);
   (sym_statementTr, MkMetadata true true false);
   (sym_gotoTr, MkMetadata true true false);
   (sym_labeledStatementTr, MkMetadata true true false);
   (sym__statementTr, MkMetadata false true false);
   (sym_assignment, MkMetadata true true false);
   (sym_varAssignDef, MkMetadata true true false);
   (sym_varDef, MkMetadata true true false);
   (sym_inlineVarStringTyperef, MkMetadata true true false);
   (sym_constDef, MkMetadata true true false);
   (sym_label, MkMetadata true true false);
   (sym_caseLabel, MkMetadata true true false);
   (sym__statementsTr, MkMetadata false true false);
   (sym_statementsTr, MkMetadata true true false);
   (sym_asmBody, MkMetadata true true false);
   (sym__expr, MkMetadata false true false);
   (sym_exprConditional, MkMetadata true true false);
   (sym__ref, MkMetadata false true false);
   (sym_lambda, MkMetadata true true false);
   (sym_inherited, MkMetadata true true false);
   (sym_exprDot, MkMetadata true true false);
   (sym_exprDeref, MkMetadata true true false)
  ].

Definition ts_symbol_metadata_8 : list (ts_symbol * TSSymbolMetadata) :=
  [
   (sym_exprAs, MkMetadata true true false);
   (sym_exprTpl, MkMetadata true true false);
   (sym_exprSubscript, MkMetadata true true false);
   (sym_exprCall, MkMetadata true true false);
   (sym_legacyFormat, MkMetadata true true false);
   (sym_exprArgs, MkMetadata true true false);
   (sym__exprIsNot, MkMetadata false true false);
   (sym_exprBinary, MkMetadata true true false);
   (sym_exprUnary, MkMetadata true true false);
   (sym_exprParens, MkMetadata true true false);
   (sym_exprBrackets, MkMetadata true true false);
   (sym_type, MkMetadata true true false);
   (sym__anonymousRecord, MkMetadata true true false);
   (sym_declSubRange, MkMetadata true true false);
   (sym__subRangeBound, MkMetadata false true false);
   (sym__subRangeCall, MkMetadata true true false);
   (sym__subRangeUnary, MkMetadata true true false);
   (sym__subRangeBinary, MkMetadata true true false);
   (sym_typeref, MkMetadata true true false);
   (sym__typeref, MkMetadata false true false);
   (sym_typerefDot, MkMetadata true true false);
   (sym_typerefTpl, MkMetadata true true false);
   (sym_typerefPtr, MkMetadata true true false);
   (sym_typerefArgs, MkMetadata true true false);
   (sym_genericDot, MkMetadata true true false);
   (sym_genericTpl, MkMetadata true true false);
   (sym__genericName, MkMetadata false true false);
   (sym_genericArgs, MkMetadata true true false);
   (sym_genericArg, MkMetadata true true false);
   (sym__genericKeywordConstraintTyperef, MkMetadata true true false);
   (sym__literal, MkMetadata false true false);
   (sym_literalString, MkMetadata true true false);
   (sym__literalString, MkMetadata false true false);
   (sym_literalChar, MkMetadata true true false);
   (sym_literalNumber, MkMetadata true true false);
   (sym__literalInt, MkMetadata false true false)
  ].

Definition ts_symbol_metadata_9 : list (ts_symbol * TSSymbolMetadata) :=
  [
   (sym__literalFloat, MkMetadata false true false);
   (sym_range, MkMetadata true true false);
   (aux_sym__definitions, MkMetadata false false false);
   (sym__definition, MkMetadata false true false);
   (sym_defProc, MkMetadata true true false);
   (sym__defProcImpl, MkMetadata false true false);
   (sym__defProcBody, MkMetadata false true false);
   (sym_declProcFwd, MkMetadata true true false);
   (sym__visibility, MkMetadata false true false);
   (aux_sym__declarations, MkMetadata false false false);
   (aux_sym__classDeclarations, MkMetadata false false false);
   (sym_defaultValue, MkMetadata true true false);
   (sym_declUses, MkMetadata true true false);
   (sym__usesClauseEntry, MkMetadata false true false);
   (sym__usesModule, MkMetadata false true false);
   (sym_ppUsesBlock, MkMetadata true true false);
   (sym_ppUsesBlockWithSemi, MkMetadata true true false);
   (sym__ppIf, MkMetadata true true false);
   (sym__ppElse, MkMetadata true true false);
   (sym__ppEndIf, MkMetadata true true false);
   (sym_ppBlock, MkMetadata true true false);
   (sym__ppStatementBlock, MkMetadata true true false);
   (sym_declExports, MkMetadata true true false);
   (sym_declTypes, MkMetadata true true false);
   (sym_declVars, MkMetadata true true false);
   (sym_declConsts, MkMetadata true true false);
   (sym_declType, MkMetadata true true false);
   (sym_declProc, MkMetadata true true false);
   (sym_declVar, MkMetadata true true false);
   (sym_declConst, MkMetadata true true false);
   (sym_declLabels, MkMetadata true true false);
   (sym_declLabel, MkMetadata true true false);
   (sym_declExport, MkMetadata true true false);
   (sym_declEnum, MkMetadata true true false);
   (sym_declEnumValue, MkMetadata true true false);
   (sym_declSet, MkMetadata true true false)
  ].

Definition ts_symbol_metadata_10 : list (ts_symbol * TSSymbolMetadata) :=
  [
   (sym_declArray, MkMetadata true true false);
   (sym_arrayOfConstType, MkMetadata true true false);
   (sym_arrayOfConstTyperef, MkMetadata true true false);
   (sym_declFile, MkMetadata true true false);
   (sym_declString, MkMetadata true true false);
   (sym_declProcRef, MkMetadata true true false);
   (sym_declMetaClass, MkMetadata true true false);
   (sym_declClass, MkMetadata true true false);
   (sym_declIntf, MkMetadata true true false);
   (sym_declHelper, MkMetadata true true false);
   (sym_guid, MkMetadata true true false);
   (sym__declClass, MkMetadata false true false);
   (sym_declSection, MkMetadata true true false);
   (sym_ppDeclSection, MkMetadata true true false);
   (aux_sym__declFields, MkMetadata false false false);
   (sym_declField, MkMetadata true true false);
   (sym_declProp, MkMetadata true true false);
   (sym_declPropArgs, MkMetadata true true false);
   (sym_declVariant, MkMetadata true true false);
   (sym_declVariantClause, MkMetadata true true false);
   (sym_declVariantField, MkMetadata true true false);
   (sym__declProc, MkMetadata false true false);
   (sym__declOperator, MkMetadata false true false);
   (sym_operatorDot, MkMetadata true true false);
   (sym__operatorName, MkMetadata false true false);
   (sym_operatorName, MkMetadata true true false);
   (sym_declArgs, MkMetadata true true false);
   (sym_declArg, MkMetadata true true false);
   (sym__procAttribute, MkMetadata false true false);
   (sym__procAttributeNoExt, MkMetadata false true false);
   (sym__procAttributesPp, MkMetadata false true false);
   (sym_procAttribute, MkMetadata true true false);
   (sym_rttiAttributes, MkMetadata true true false);
   (sym_procExternal, MkMetadata true true false);
   (sym__initializer, MkMetadata false true false);
   (sym_recInitializer, MkMetadata true true false)
  ].

Definition ts_symbol_metadata_11 : list (ts_symbol * TSSymbolMetadata) :=
  [
   (sym_recInitializerField, MkMetadata true true false);
   (sym_arrInitializer, MkMetadata true true false);
   (sym_kEndDot, MkMetadata true true false);
   (sym_kDot, MkMetadata true true false);
   (aux_sym_unit_repeat1, MkMetadata false false false);
   (aux_sym_moduleName_repeat1, MkMetadata false false false);
   (aux_sym_exceptionElse_repeat1, MkMetadata false false false);
   (aux_sym_case_repeat1, MkMetadata false false false);
   (aux_sym_with_repeat1, MkMetadata false false false);
   (aux_sym_labeledStatement_repeat1, MkMetadata false false false);
   (aux_sym__exceptionHandlersTr_repeat1, MkMetadata false false false);
   (aux_sym_caseLabel_repeat1, MkMetadata false false false);
   (aux_sym__statementsTr_repeat1, MkMetadata false false false);
   (aux_sym_asmBody_repeat1, MkMetadata false false false);
   (aux_sym_exprTpl_repeat1, MkMetadata false false false);
   (aux_sym_legacyFormat_repeat1, MkMetadata false false false);
   (aux_sym_exprArgs_repeat1, MkMetadata false false false);
   (aux_sym_type_repeat1, MkMetadata false false false);
   (aux_sym_typerefArgs_repeat1, MkMetadata false false false);
   (aux_sym_genericArgs_repeat1, MkMetadata false false false);
   (aux_sym_genericArg_repeat1, MkMetadata false false false);
   (aux_sym_literalString_repeat1, MkMetadata false false false);
   (aux_sym_defProc_repeat1, MkMetadata false false false);
   (aux_sym__defProcBody_repeat1, MkMetadata false false false);
   (aux_sym_declProcFwd_repeat1, MkMetadata false false false);
   (aux_sym_declUses_repeat1, MkMetadata false false false);
   (aux_sym_ppUsesBlock_repeat1, MkMetadata false false false);
   (aux_sym_ppUsesBlock_repeat2, MkMetadata false false false);
   (aux_sym_ppUsesBlockWithSemi_repeat1, MkMetadata false false false);
   (aux_sym_ppBlock_repeat1, MkMetadata false false false);
   (aux_sym_ppBlock_repeat2, MkMetadata false false false);
   (aux_sym__ppStatementBlock_repeat1, MkMetadata false false false);
   (aux_sym__ppStatementBlock_repeat2, MkMetadata false false false);
   (aux_sym_declExports_repeat1, MkMetadata false false false);
   (aux_sym_declTypes_repeat1, MkMetadata false false false);
   (aux_sym_declVars_repeat1, MkMetadata false false false)
  ].

Definition ts_symbol_metadata_12 : list (ts_symbol * TSSymbolMetadata) :=
  [
   (aux_sym_declConsts_repeat1, MkMetadata false false false);
   (aux_sym_declVar_repeat1, MkMetadata false false false);
   (aux_sym_declVar_repeat2, MkMetadata false false false);
   (aux_sym_declLabels_repeat1, MkMetadata false false false);
   (aux_sym_declExport_repeat1, MkMetadata false false false);
   (aux_sym_declEnum_repeat1, MkMetadata false false false);
   (aux_sym_declArray_repeat1, MkMetadata false false false);
   (aux_sym_declClass_repeat1, MkMetadata false false false);
   (aux_sym__declClass_repeat1, MkMetadata false false false);
   (aux_sym_declProp_repeat1, MkMetadata false false false);
   (aux_sym_declProp_repeat2, MkMetadata false false false);
   (aux_sym_declPropArgs_repeat1, MkMetadata false false false);
   (aux_sym_declVariant_repeat1, MkMetadata false false false);
   (aux_sym_declVariantClause_repeat1, MkMetadata false false false);
   (aux_sym__declProc_repeat1, MkMetadata false false false);
   (aux_sym__procAttribute_repeat1, MkMetadata false false false);
   (aux_sym__procAttributeNoExt_repeat1, MkMetadata false false false);
   (aux_sym__procAttributeNoExt_repeat2, MkMetadata false false false);
   (aux_sym__procAttributesPp_repeat1, MkMetadata false false false);
   (aux_sym__procAttributesPp_repeat2, MkMetadata false false false);
   (aux_sym_rttiAttributes_repeat1, MkMetadata false false false);
   (aux_sym_rttiAttributes_repeat2, MkMetadata false false false);
   (aux_sym_recInitializer_repeat1, MkMetadata false false false);
   (aux_sym_arrInitializer_repeat1, MkMetadata false false false)
  ].

(** How a symbol appears in the tree. *)
Definition ts_symbol_metadata : list (ts_symbol * TSSymbolMetadata) :=
  ts_symbol_metadata_1 ++ ts_symbol_metadata_2 ++ ts_symbol_metadata_3 ++ ts_symbol_metadata_4 ++ ts_symbol_metadata_5 ++ ts_symbol_metadata_6 ++ ts_symbol_metadata_7 ++ ts_symbol_metadata_8 ++ ts_symbol_metadata_9 ++ ts_symbol_metadata_10 ++ ts_symbol_metadata_11 ++ ts_symbol_metadata_12.

(** ** Facts about the enumeration *)

Lemma all_symbols_lookup s : all_symbols !! symbol_index s = Some s.
Proof. by destruct s. Qed.

#[export] Instance symbol_index_inj : Inj (=) (=) symbol_index.
Proof.
  intros s1 s2 Heq. apply (inj Some).
  by rewrite <- !all_symbols_lookup, Heq.
Qed.

#[export] Instance ts_symbol_eq_dec : EqDecision ts_symbol.
Proof.
  refine (λ s1 s2, cast_if (decide (symbol_index s1 = symbol_index s2))).
  - by apply (inj symbol_index).
  - congruence.
Defined.

Definition symbol_eqb (s1 s2 : ts_symbol) : bool :=
  (symbol_index s1 =? symbol_index s2)%nat.

Lemma symbol_eqb_spec s1 s2 : symbol_eqb s1 s2 = true ↔ s1 = s2.
Proof.
  unfold symbol_eqb. rewrite Nat.eqb_eq. split; [apply (inj symbol_index)|congruence].
Qed.

Lemma symbol_index_lt s : (symbol_index s < SYMBOL_COUNT)%nat.
Proof. apply Nat.ltb_lt. by destruct s. Qed.

Lemma elem_of_all_symbols s : s ∈ all_symbols.
Proof. apply list_elem_of_lookup. eauto using all_symbols_lookup. Qed.

(** A property of all symbols, checked by evaluation. *)
Lemma symbol_forall (P : ts_symbol → bool) :
  forallb P all_symbols = true → ∀ s, P s = true.
Proof.
  intros Ha s. rewrite forallb_forall in Ha.
  apply Ha, list_elem_of_In, elem_of_all_symbols.
Qed.

(** ** Reading the arrays *)

(** The element of an array of which the initializers are [t]. *)
Definition entry {A} (t : list (ts_symbol * A)) (s : ts_symbol) : option A :=
  snd <$> List.find (λ e, symbol_eqb (fst e) s) t.

Definition symbol_name (s : ts_symbol) : string := default EmptyString (entry ts_symbol_names s).
Definition public_symbol (s : ts_symbol) : ts_symbol := default ts_builtin_sym_end (entry ts_symbol_map s).
Definition metadata (s : ts_symbol) : TSSymbolMetadata :=
  default (MkMetadata false false false) (entry ts_symbol_metadata s).
