(* ===== verification/LexTable.v ===== *)
(** * The automaton of the generated lexer [ts_lex] of [parser.c]

    A state is a [case] of the [switch]: the list of its statements, in
    order, up to [END_STATE()].  The blocks below are consecutive runs of
    cases, so that case [n] is element [n] of [ts_lex_cases]. *)

From S2P Require Import Prelude.
From S2P Require Import Symbols.

(** A disjunct of a condition: [lookahead == c], or
    [lo <= lookahead && lookahead <= hi]. *)
Inductive test : Set :=
  | Eq (c : Z)
  | Range (lo hi : Z).

(** The statements of a case.  [IF_EOF n] is [if (eof) ADVANCE(n);],
    [IF_ANY ts n] is [if (t1 || ... || tk) ADVANCE(n);] and [IF_NONE cs n] is
    [if (lookahead != c1 && ... && lookahead != ck) ADVANCE(n);]. *)
Inductive stmt : Set :=
  | ACCEPT_TOKEN (symbol_value : ts_symbol)
  | IF_EOF (state_value : nat)
  | ADVANCE_MAP (map : list (Z * nat))
  | IF_ANY (tests : list test) (state_value : nat)
  | IF_NONE (chars : list Z) (state_value : nat).

(** Cases 0 to 4. *)
Definition ts_lex_cases_0 : list (list stmt) :=
  [
    [ IF_EOF 146;
      ADVANCE_MAP [(c! "#", 163); (c! "'", 30); (c! "(", 156); (c! ")",
         160); (c! "*", 193); (c! "+", 187); (c! ",", 150); (c! "-", 191);
         (c! ".", 173); (c! "/", 195); (c! ":", 149); (c! ";", 147);
         (c! "<", 176); (c! "=", 178); (c! ">", 181); (c! "@", 196);
         (c! "[", 154); (c! "]", 155); (c! "^", 197); (c! "{", 19);
         (c! "T", 137); (c! "t", 137)]%nat;
      IF_ANY [Range (c! "$") (c! "&")] 152;
      IF_ANY [Range (TAB) (CR); Eq (c! " ")] 206;
      IF_ANY [Range (c! "0") (c! "9")] 205;
      IF_ANY [Range (c! "A") (c! "F"); Range (c! "a") (c! "f")] 151 ];
    [ ADVANCE_MAP [(c! "#", 163); (c! "$", 143); (c! "%", 140); (c! "'",
         30); (c! "(", 156); (c! "+", 186); (c! ",", 150); (c! "-", 190);
         (c! ".", 141); (c! "/", 94); (c! ";", 147); (c! "@", 196);
         (c! "[", 154); (c! "{", 19); (c! "F", 133); (c! "f", 133);
         (c! "T", 137); (c! "t", 137)]%nat;
      IF_ANY [Range (TAB) (CR); Eq (c! " ")] 206;
      IF_ANY [Range (c! "0") (c! "9")] 205 ];
    [ ADVANCE_MAP [(c! "#", 163); (c! "$", 143); (c! "%", 140); (c! "'",
         30); (c! "(", 156); (c! "+", 186); (c! ",", 150); (c! "-", 190);
         (c! ".", 141); (c! "/", 94); (c! ";", 147); (c! "@", 196);
         (c! "[", 154); (c! "{", 19); (c! "F", 133); (c! "f", 133);
         (c! "T", 137); (c! "t", 137)]%nat;
      IF_ANY [Range (TAB) (CR); Eq (c! " ")] 206;
      IF_ANY [Range (c! "0") (c! "9")] 164 ];
    [ ADVANCE_MAP [(c! "#", 163); (c! "$", 143); (c! "%", 140); (c! "'",
         30); (c! "(", 157); (c! "+", 186); (c! "-", 190); (c! ".", 141);
         (c! "/", 94); (c! ":", 148); (c! ";", 147); (c! "@", 196);
         (c! "[", 154); (c! "{", 28); (c! "F", 133); (c! "f", 133);
         (c! "T", 137); (c! "t", 137)]%nat;
      IF_ANY [Range (TAB) (CR); Eq (c! " ")] 206;
      IF_ANY [Range (c! "0") (c! "9")] 205 ];
    [ ADVANCE_MAP [(c! "#", 163); (c! "$", 143); (c! "%", 140); (c! "'",
         30); (c! "(", 157); (c! "+", 186); (c! "-", 190); (c! ".", 141);
         (c! "/", 94); (c! "@", 196); (c! "[", 154); (c! "^", 197);
         (c! "{", 28); (c! "F", 133); (c! "f", 133); (c! "T", 137);
         (c! "t", 137)]%nat;
      IF_ANY [Range (TAB) (CR); Eq (c! " ")] 206;
      IF_ANY [Range (c! "0") (c! "9")] 164 ]
  ].

(** Cases 5 to 9. *)
Definition ts_lex_cases_5 : list (list stmt) :=
  [
    [ ADVANCE_MAP [(c! "#", 163); (c! "$", 143); (c! "%", 140); (c! "'",
         30); (c! "(", 80); (c! ")", 160); (c! "+", 186); (c! ",", 150);
         (c! "-", 190); (c! ".", 141); (c! "/", 94); (c! ":", 148);
         (c! ";", 147); (c! "=", 178); (c! ">", 180); (c! "]", 155);
         (c! "^", 197); (c! "{", 23)]%nat;
      IF_ANY [Range (TAB) (CR); Eq (c! " ")] 206;
      IF_ANY [Range (c! "0") (c! "9")] 164 ];
    [ ADVANCE_MAP [(c! "#", 163); (c! "$", 143); (c! "%", 140); (c! "'",
         30); (c! "(", 158); (c! ")", 160); (c! "+", 186); (c! ",", 150);
         (c! "-", 190); (c! ".", 141); (c! "/", 94); (c! ":", 148);
         (c! ";", 147); (c! "=", 178); (c! "@", 196); (c! "[", 154);
         (c! "]", 155); (c! "{", 23); (c! "F", 133); (c! "f", 133);
         (c! "T", 137); (c! "t", 137)]%nat;
      IF_ANY [Range (TAB) (CR); Eq (c! " ")] 206;
      IF_ANY [Range (c! "0") (c! "9")] 205 ];
    [ ADVANCE_MAP [(c! "#", 163); (c! "$", 143); (c! "%", 140); (c! "'",
         30); (c! "(", 158); (c! ")", 160); (c! "+", 186); (c! ",", 150);
         (c! "-", 190); (c! ".", 141); (c! "/", 94); (c! ";", 147);
         (c! "=", 178); (c! ">", 180); (c! "@", 196); (c! "[", 154);
         (c! "]", 155); (c! "^", 197); (c! "{", 23); (c! "F", 133);
         (c! "f", 133); (c! "T", 137); (c! "t", 137)]%nat;
      IF_ANY [Range (TAB) (CR); Eq (c! " ")] 206;
      IF_ANY [Range (c! "0") (c! "9")] 164 ];
    [ ADVANCE_MAP [(c! "#", 163); (c! "$", 143); (c! "%", 140); (c! "'",
         30); (c! "(", 158); (c! "*", 96); (c! "+", 185); (c! "-", 189);
         (c! ".", 141); (c! "/", 95); (c! ":", 99); (c! ";", 147); (c! "=",
         178); (c! "@", 196); (c! "[", 154); (c! "{", 23); (c! "F", 133);
         (c! "f", 133); (c! "T", 137); (c! "t", 137)]%nat;
      IF_ANY [Range (TAB) (CR); Eq (c! " ")] 206;
      IF_ANY [Range (c! "0") (c! "9")] 164 ];
    [ ADVANCE_MAP [(c! "#", 163); (c! "$", 143); (c! "%", 140); (c! "'",
         30); (c! "(", 159); (c! "+", 186); (c! "-", 190); (c! ".", 141);
         (c! "/", 94); (c! ":", 148); (c! ";", 147); (c! "@", 196);
         (c! "[", 154); (c! "{", 26); (c! "F", 133); (c! "f", 133);
         (c! "T", 137); (c! "t", 137)]%nat;
      IF_ANY [Range (TAB) (CR); Eq (c! " ")] 206;
      IF_ANY [Range (c! "0") (c! "9")] 164 ]
  ].

(** Cases 10 to 15. *)
Definition ts_lex_cases_10 : list (list stmt) :=
  [
    [ ADVANCE_MAP [(c! "#", 163); (c! "'", 30); (c! "(", 55); (c! ",",
         150); (c! ".", 173); (c! "/", 94); (c! ";", 147); (c! "[", 154);
         (c! "{", 19)]%nat;
      IF_ANY [Range (TAB) (CR); Eq (c! " ")] 206 ];
    [ ADVANCE_MAP [(c! "#", 163); (c! "'", 30); (c! "(", 157); (c! ")",
         160); (c! "*", 192); (c! "+", 184); (c! ",", 150); (c! "-", 188);
         (c! ".", 173); (c! "/", 194); (c! ":", 148); (c! ";", 147);
         (c! "<", 177); (c! "=", 178); (c! ">", 181); (c! "[", 154);
         (c! "]", 155); (c! "^", 197); (c! "{", 28)]%nat;
      IF_ANY [Range (TAB) (CR); Eq (c! " ")] 206 ];
    [ ADVANCE_MAP [(c! "#", 163); (c! "'", 30); (c! "(", 80); (c! ")",
         160); (c! "*", 192); (c! "+", 184); (c! ",", 150); (c! "-", 188);
         (c! ".", 173); (c! "/", 194); (c! ":", 149); (c! ";", 147);
         (c! "<", 177); (c! "=", 178); (c! ">", 181); (c! "]", 155);
         (c! "^", 197); (c! "{", 23)]%nat;
      IF_ANY [Range (TAB) (CR); Eq (c! " ")] 206 ];
    [ ADVANCE_MAP [(c! "#", 163); (c! "'", 30); (c! "(", 80); (c! ")",
         160); (c! "*", 192); (c! "+", 184); (c! ",", 150); (c! "-", 188);
         (c! ".", 93); (c! "/", 194); (c! ":", 148); (c! ";", 147);
         (c! "<", 177); (c! "=", 178); (c! ">", 181); (c! "]", 155);
         (c! "^", 197); (c! "{", 23)]%nat;
      IF_ANY [Range (TAB) (CR); Eq (c! " ")] 206 ];
    [ ADVANCE_MAP [(c! "#", 163); (c! "'", 30); (c! "(", 158); (c! ")",
         160); (c! "*", 192); (c! "+", 184); (c! ",", 150); (c! "-", 188);
         (c! ".", 173); (c! "/", 194); (c! ":", 148); (c! ";", 147);
         (c! "<", 177); (c! "=", 178); (c! ">", 181); (c! "[", 154);
         (c! "]", 155); (c! "^", 197); (c! "{", 23)]%nat;
      IF_ANY [Range (TAB) (CR); Eq (c! " ")] 206 ];
    [ ADVANCE_MAP [(c! "#", 163); (c! "'", 30); (c! "(", 158); (c! "*",
         193); (c! "+", 187); (c! ",", 150); (c! "-", 191); (c! ".", 173);
         (c! "/", 195); (c! ":", 149); (c! ";", 147); (c! "<", 177);
         (c! "=", 178); (c! ">", 181); (c! "[", 154); (c! "^", 197);
         (c! "{", 23)]%nat;
      IF_ANY [Range (TAB) (CR); Eq (c! " ")] 206 ]
  ].

(** Cases 16 to 30. *)
Definition ts_lex_cases_16 : list (list stmt) :=
  [
    [ ADVANCE_MAP [(c! "#", 163); (c! "'", 30); (c! "(", 158); (c! "*",
         192); (c! "+", 184); (c! ",", 150); (c! "-", 188); (c! ".", 174);
         (c! "/", 194); (c! ":", 148); (c! "<", 177); (c! "=", 178);
         (c! ">", 181); (c! "[", 154); (c! "]", 155); (c! "^", 197);
         (c! "{", 23)]%nat;
      IF_ANY [Range (TAB) (CR); Eq (c! " ")] 206 ];
    [ ADVANCE_MAP [(c! "#", 163); (c! "'", 30); (c! "(", 92); (c! "*",
         192); (c! "+", 184); (c! "-", 188); (c! "/", 194); (c! ":", 148);
         (c! ";", 147); (c! "<", 177); (c! "=", 178); (c! ">", 181);
         (c! "^", 197); (c! "{", 26)]%nat;
      IF_ANY [Range (TAB) (CR); Eq (c! " ")] 206 ];
    [ ADVANCE_MAP [(c! "#", 163); (c! "'", 30); (c! "(", 159); (c! "*",
         192); (c! "+", 184); (c! ",", 150); (c! "-", 188); (c! ".", 173);
         (c! "/", 194); (c! ";", 147); (c! "<", 177); (c! "=", 178);
         (c! ">", 181); (c! "[", 154); (c! "^", 197); (c! "{", 26)]%nat;
      IF_ANY [Range (TAB) (CR); Eq (c! " ")] 206 ];
    [ IF_ANY [Eq (c! "$")] 104;
      IF_ANY [Eq (c! "}")] 208;
      IF_NONE [0] 100 ];
    [ IF_ANY [Eq (c! "$")] 61;
      IF_ANY [Eq (c! "*")] 47;
      IF_NONE [0] 56 ];
    [ ADVANCE_MAP [(c! "$", 143); (c! "%", 140); (c! "(", 80); (c! ")",
         160); (c! "*", 96); (c! "+", 97); (c! ",", 150); (c! "-", 98);
         (c! ".", 173); (c! "/", 95); (c! ":", 99); (c! ";", 147); (c! "<",
         175); (c! "=", 178); (c! ">", 180); (c! "]", 155); (c! "{",
         23)]%nat;
      IF_ANY [Range (TAB) (CR); Eq (c! " ")] 206;
      IF_ANY [Range (c! "0") (c! "9")] 165 ];
    [ IF_ANY [Eq (c! "$")] 108;
      IF_ANY [Eq (c! "}")] 208;
      IF_NONE [0] 100 ];
    [ IF_ANY [Eq (c! "$")] 122;
      IF_ANY [Eq (c! "}")] 208;
      IF_NONE [0] 100 ];
    [ IF_ANY [Eq (c! "$")] 65;
      IF_ANY [Eq (c! "*")] 47;
      IF_NONE [0] 56 ];
    [ IF_ANY [Eq (c! "$")] 79;
      IF_ANY [Eq (c! "*")] 47;
      IF_NONE [0] 56 ];
    [ IF_ANY [Eq (c! "$")] 105;
      IF_ANY [Eq (c! "}")] 208;
      IF_NONE [0] 100 ];
    [ IF_ANY [Eq (c! "$")] 62;
      IF_ANY [Eq (c! "*")] 47;
      IF_NONE [0] 56 ];
    [ IF_ANY [Eq (c! "$")] 117;
      IF_ANY [Eq (c! "}")] 208;
      IF_NONE [0] 100 ];
    [ IF_ANY [Eq (c! "$")] 74;
      IF_ANY [Eq (c! "*")] 47;
      IF_NONE [0] 56 ];
    [ IF_ANY [Eq (c! "'")] 162;
      IF_NONE [0] 30 ]
  ].

(** Cases 31 to 38. *)
Definition ts_lex_cases_31 : list (list stmt) :=
  [
    [ ADVANCE_MAP [(c! "(", 156); (c! "*", 192); (c! "+", 184); (c! "-",
         188); (c! ".", 173); (c! "/", 194); (c! ";", 147); (c! "<", 177);
         (c! "=", 178); (c! ">", 181); (c! "[", 154); (c! "^", 197);
         (c! "{", 19)]%nat;
      IF_ANY [Range (TAB) (CR); Eq (c! " ")] 206 ];
    [ IF_ANY [Eq (c! "(")] 57;
      IF_ANY [Eq (c! ".")] 173;
      IF_ANY [Eq (c! "/")] 94;
      IF_ANY [Eq (c! "<")] 175;
      IF_ANY [Eq (c! "[")] 154;
      IF_ANY [Eq (c! "{")] 28;
      IF_ANY [Range (TAB) (CR); Eq (c! " ")] 206 ];
    [ IF_ANY [Eq (c! "(")] 81;
      IF_ANY [Eq (c! ")")] 153;
      IF_ANY [Eq (c! "/")] 94;
      IF_ANY [Eq (c! "{")] 23;
      IF_ANY [Range (TAB) (CR); Eq (c! " ")] 206;
      IF_ANY [Range (c! "$") (c! "&"); Range (c! "*") (c! "."); Range
         (c! ":") (c! "<"); Eq (c! ">"); Eq (c! "@"); Eq (c! "["); Eq
         (c! "]")] 152;
      IF_ANY [Range (c! "0") (c! "9"); Range (c! "A") (c! "F"); Range
         (c! "a") (c! "f")] 151 ];
    [ ADVANCE_MAP [(c! "(", 157); (c! "*", 193); (c! "+", 187); (c! "-",
         191); (c! ".", 173); (c! "/", 195); (c! ":", 99); (c! ";", 147);
         (c! "<", 177); (c! "=", 178); (c! ">", 181); (c! "[", 154);
         (c! "^", 197); (c! "{", 28)]%nat;
      IF_ANY [Range (TAB) (CR); Eq (c! " ")] 206 ];
    [ ADVANCE_MAP [(c! "(", 157); (c! "*", 192); (c! "+", 184); (c! ",",
         150); (c! "-", 188); (c! ".", 174); (c! "/", 194); (c! ":", 148);
         (c! "<", 177); (c! "=", 178); (c! ">", 181); (c! "[", 154);
         (c! "]", 155); (c! "^", 197); (c! "{", 28)]%nat;
      IF_ANY [Range (TAB) (CR); Eq (c! " ")] 206 ];
    [ ADVANCE_MAP [(c! "(", 80); (c! ")", 160); (c! "*", 192); (c! "+",
         184); (c! ",", 150); (c! "-", 188); (c! ".", 173); (c! "/", 94);
         (c! ":", 148); (c! ";", 147); (c! "<", 175); (c! "=", 178);
         (c! ">", 180); (c! "]", 155); (c! "{", 23)]%nat;
      IF_ANY [Range (TAB) (CR); Eq (c! " ")] 206 ];
    [ ADVANCE_MAP [(c! "(", 80); (c! ")", 160); (c! "*", 192); (c! "+",
         184); (c! "-", 188); (c! ".", 174); (c! "/", 94); (c! ";", 147);
         (c! "<", 175); (c! "=", 178); (c! "[", 154); (c! "]", 155);
         (c! "{", 23)]%nat;
      IF_ANY [Range (TAB) (CR); Eq (c! " ")] 206 ];
    [ ADVANCE_MAP [(c! "(", 80); (c! "*", 193); (c! "+", 187); (c! "-",
         191); (c! ".", 174); (c! "/", 95); (c! ":", 99); (c! ";", 147);
         (c! "<", 175); (c! "=", 178); (c! "[", 154); (c! "{", 23)]%nat;
      IF_ANY [Range (TAB) (CR); Eq (c! " ")] 206 ]
  ].

(** Cases 39 to 51. *)
Definition ts_lex_cases_39 : list (list stmt) :=
  [
    [ IF_ANY [Eq (c! "(")] 91;
      IF_ANY [Eq (c! ",")] 150;
      IF_ANY [Eq (c! "/")] 94;
      IF_ANY [Eq (c! ":")] 148;
      IF_ANY [Eq (c! "{")] 22;
      IF_ANY [Range (TAB) (CR); Eq (c! " ")] 206 ];
    [ ADVANCE_MAP [(c! "(", 158); (c! ")", 160); (c! "*", 192); (c! "+",
         184); (c! ",", 150); (c! "-", 188); (c! ".", 173); (c! "/", 94);
         (c! ":", 148); (c! ";", 147); (c! "<", 175); (c! "=", 178);
         (c! ">", 180); (c! "]", 155); (c! "{", 23)]%nat;
      IF_ANY [Range (TAB) (CR); Eq (c! " ")] 206 ];
    [ ADVANCE_MAP [(c! "(", 158); (c! ")", 160); (c! "*", 192); (c! "+",
         184); (c! "-", 188); (c! ".", 174); (c! "/", 94); (c! ";", 147);
         (c! "<", 175); (c! "=", 178); (c! "]", 155); (c! "{", 23)]%nat;
      IF_ANY [Range (TAB) (CR); Eq (c! " ")] 206 ];
    [ ADVANCE_MAP [(c! "(", 158); (c! "*", 193); (c! "+", 187); (c! "-",
         191); (c! ".", 174); (c! "/", 95); (c! ":", 99); (c! ";", 147);
         (c! "<", 175); (c! "=", 178); (c! "{", 23)]%nat;
      IF_ANY [Range (TAB) (CR); Eq (c! " ")] 206 ];
    [ ADVANCE_MAP [(c! "(", 92); (c! "*", 192); (c! "+", 184); (c! "-",
         188); (c! ".", 173); (c! "/", 94); (c! "<", 175); (c! "{",
         26)]%nat;
      IF_ANY [Range (TAB) (CR); Eq (c! " ")] 206 ];
    [ ADVANCE_MAP [(c! "(", 92); (c! "*", 192); (c! "+", 184); (c! "-",
         188); (c! ".", 174); (c! "/", 94); (c! "<", 175); (c! "[", 154);
         (c! "{", 26)]%nat;
      IF_ANY [Range (TAB) (CR); Eq (c! " ")] 206 ];
    [ ADVANCE_MAP [(c! "(", 159); (c! "*", 192); (c! "+", 184); (c! "-",
         188); (c! ".", 173); (c! "/", 94); (c! "<", 175); (c! "{",
         26)]%nat;
      IF_ANY [Range (TAB) (CR); Eq (c! " ")] 206 ];
    [ ADVANCE_MAP [(c! "(", 159); (c! "*", 192); (c! "+", 184); (c! "-",
         188); (c! ".", 174); (c! "/", 94); (c! "<", 175); (c! "{",
         26)]%nat;
      IF_ANY [Range (TAB) (CR); Eq (c! " ")] 206 ];
    [ IF_ANY [Eq (c! ")")] 208;
      IF_ANY [Eq (c! "*")] 47;
      IF_NONE [0] 56 ];
    [ IF_ANY [Eq (c! ")")] 207;
      IF_ANY [Eq (c! "*")] 48;
      IF_NONE [0] 79 ];
    [ IF_ANY [Eq (c! ")")] 170;
      IF_ANY [Eq (c! "*")] 49;
      IF_NONE [0] 79 ];
    [ IF_ANY [Eq (c! ")")] 170;
      IF_ANY [Eq (c! "*")] 50;
      IF_NONE [0] 85 ];
    [ IF_ANY [Eq (c! ")")] 171;
      IF_ANY [Eq (c! "*")] 51;
      IF_NONE [0] 79 ]
  ].

(** Cases 52 to 76. *)
Definition ts_lex_cases_52 : list (list stmt) :=
  [
    [ IF_ANY [Eq (c! ")")] 171;
      IF_ANY [Eq (c! "*")] 52;
      IF_NONE [0] 88 ];
    [ IF_ANY [Eq (c! ")")] 172;
      IF_ANY [Eq (c! "*")] 53;
      IF_NONE [0] 79 ];
    [ IF_ANY [Eq (c! ")")] 172;
      IF_ANY [Eq (c! "*")] 54;
      IF_NONE [0] 90 ];
    [ IF_ANY [Eq (c! "*")] 20 ];
    [ IF_ANY [Eq (c! "*")] 47;
      IF_NONE [0] 56 ];
    [ IF_ANY [Eq (c! "*")] 29 ];
    [ IF_ANY [Eq (c! "*")] 48;
      IF_ANY [Eq (c! "D"); Eq (c! "d")] 73;
      IF_NONE [0] 79 ];
    [ IF_ANY [Eq (c! "*")] 48;
      IF_ANY [Eq (c! "D"); Eq (c! "d")] 89;
      IF_NONE [0] 79 ];
    [ IF_ANY [Eq (c! "*")] 48;
      IF_ANY [Eq (c! "D"); Eq (c! "d")] 66;
      IF_NONE [0] 79 ];
    [ IF_ANY [Eq (c! "*")] 48;
      IF_ANY [Eq (c! "E"); Eq (c! "e")] 75;
      IF_ANY [Eq (c! "I"); Eq (c! "i")] 67;
      IF_NONE [0] 79 ];
    [ IF_ANY [Eq (c! "*")] 48;
      IF_ANY [Eq (c! "E"); Eq (c! "e")] 75;
      IF_ANY [Eq (c! "I"); Eq (c! "i")] 70;
      IF_NONE [0] 79 ];
    [ IF_ANY [Eq (c! "*")] 48;
      IF_ANY [Eq (c! "E"); Eq (c! "e")] 77;
      IF_NONE [0] 79 ];
    [ IF_ANY [Eq (c! "*")] 48;
      IF_ANY [Eq (c! "E"); Eq (c! "e")] 86;
      IF_NONE [0] 79 ];
    [ IF_ANY [Eq (c! "*")] 48;
      IF_ANY [Eq (c! "E"); Eq (c! "e")] 76;
      IF_ANY [Eq (c! "I"); Eq (c! "i")] 70;
      IF_NONE [0] 79 ];
    [ IF_ANY [Eq (c! "*")] 48;
      IF_ANY [Eq (c! "E"); Eq (c! "e")] 71;
      IF_NONE [0] 79 ];
    [ IF_ANY [Eq (c! "*")] 48;
      IF_ANY [Eq (c! "F"); Eq (c! "f")] 82;
      IF_NONE [0] 79 ];
    [ IF_ANY [Eq (c! "*")] 48;
      IF_ANY [Eq (c! "F"); Eq (c! "f")] 89;
      IF_NONE [0] 79 ];
    [ IF_ANY [Eq (c! "*")] 48;
      IF_ANY [Eq (c! "F"); Eq (c! "f")] 83;
      IF_NONE [0] 79 ];
    [ IF_ANY [Eq (c! "*")] 48;
      IF_ANY [Eq (c! "F"); Eq (c! "f")] 63;
      IF_NONE [0] 79 ];
    [ IF_ANY [Eq (c! "*")] 48;
      IF_ANY [Eq (c! "F"); Eq (c! "f")] 84;
      IF_NONE [0] 79 ];
    [ IF_ANY [Eq (c! "*")] 48;
      IF_ANY [Eq (c! "F"); Eq (c! "f")] 87;
      IF_NONE [0] 79 ];
    [ IF_ANY [Eq (c! "*")] 48;
      IF_ANY [Eq (c! "I"); Eq (c! "i")] 68;
      IF_NONE [0] 79 ];
    [ IF_ANY [Eq (c! "*")] 48;
      IF_ANY [Eq (c! "I"); Eq (c! "i")] 69;
      IF_NONE [0] 79 ];
    [ IF_ANY [Eq (c! "*")] 48;
      IF_ANY [Eq (c! "L"); Eq (c! "l")] 78;
      IF_ANY [Eq (c! "N"); Eq (c! "n")] 58;
      IF_NONE [0] 79 ];
    [ IF_ANY [Eq (c! "*")] 48;
      IF_ANY [Eq (c! "N"); Eq (c! "n")] 58;
      IF_NONE [0] 79 ]
  ].

(** Cases 77 to 104. *)
Definition ts_lex_cases_77 : list (list stmt) :=
  [
    [ IF_ANY [Eq (c! "*")] 48;
      IF_ANY [Eq (c! "N"); Eq (c! "n")] 59;
      IF_NONE [0] 79 ];
    [ IF_ANY [Eq (c! "*")] 48;
      IF_ANY [Eq (c! "S"); Eq (c! "s")] 64;
      IF_NONE [0] 79 ];
    [ IF_ANY [Eq (c! "*")] 48;
      IF_NONE [0] 79 ];
    [ IF_ANY [Eq (c! "*")] 25 ];
    [ IF_ANY [Eq (c! "*")] 25;
      IF_NONE [0] 153 ];
    [ IF_ANY [Eq (c! "*")] 49;
      IF_ANY [Eq (c! "D"); Eq (c! "d")] 66;
      IF_ANY [Eq (c! "E"); Eq (c! "e")] 77;
      IF_ANY [Eq (c! "N"); Eq (c! "n")] 60;
      IF_ANY [Range (c! "A") (c! "Z"); Eq (c! "_"); Range (c! "a")
         (c! "z")] 79;
      IF_NONE [0] 85 ];
    [ IF_ANY [Eq (c! "*")] 49;
      IF_ANY [Eq (c! "D"); Eq (c! "d")] 66;
      IF_ANY [Eq (c! "N"); Eq (c! "n")] 60;
      IF_ANY [Range (c! "A") (c! "Z"); Eq (c! "_"); Range (c! "a")
         (c! "z")] 79;
      IF_NONE [0] 85 ];
    [ IF_ANY [Eq (c! "*")] 49;
      IF_ANY [Range (c! "A") (c! "Z"); Eq (c! "_"); Range (c! "a")
         (c! "z")] 79;
      IF_NONE [0] 85 ];
    [ IF_ANY [Eq (c! "*")] 50;
      IF_NONE [0] 85 ];
    [ IF_ANY [Eq (c! "*")] 51;
      IF_ANY [Eq (c! "I"); Eq (c! "i")] 72;
      IF_ANY [Range (c! "A") (c! "Z"); Eq (c! "_"); Range (c! "a")
         (c! "z")] 79;
      IF_NONE [0] 88 ];
    [ IF_ANY [Eq (c! "*")] 51;
      IF_ANY [Range (c! "A") (c! "Z"); Eq (c! "_"); Range (c! "a")
         (c! "z")] 79;
      IF_NONE [0] 88 ];
    [ IF_ANY [Eq (c! "*")] 52;
      IF_NONE [0] 88 ];
    [ IF_ANY [Eq (c! "*")] 53;
      IF_ANY [Range (c! "A") (c! "Z"); Eq (c! "_"); Range (c! "a")
         (c! "z")] 79;
      IF_NONE [0] 90 ];
    [ IF_ANY [Eq (c! "*")] 54;
      IF_NONE [0] 90 ];
    [ IF_ANY [Eq (c! "*")] 24 ];
    [ IF_ANY [Eq (c! "*")] 27 ];
    [ IF_ANY [Eq (c! ".")] 161 ];
    [ IF_ANY [Eq (c! "/")] 209 ];
    [ IF_ANY [Eq (c! "/")] 209;
      IF_ANY [Eq (c! "=")] 202 ];
    [ IF_ANY [Eq (c! "=")] 201 ];
    [ IF_ANY [Eq (c! "=")] 199;
      IF_ANY [Range (c! "0") (c! "9")] 165 ];
    [ IF_ANY [Eq (c! "=")] 200;
      IF_ANY [Range (c! "0") (c! "9")] 165 ];
    [ IF_ANY [Eq (c! "=")] 198 ];
    [ IF_ANY [Eq (c! "}")] 208;
      IF_NONE [0] 100 ];
    [ IF_ANY [Eq (c! "}")] 207;
      IF_ANY [Eq (c! "D"); Eq (c! "d")] 116;
      IF_NONE [0] 122 ];
    [ IF_ANY [Eq (c! "}")] 207;
      IF_ANY [Eq (c! "D"); Eq (c! "d")] 130;
      IF_NONE [0] 122 ];
    [ IF_ANY [Eq (c! "}")] 207;
      IF_ANY [Eq (c! "D"); Eq (c! "d")] 109;
      IF_NONE [0] 122 ];
    [ IF_ANY [Eq (c! "}")] 207;
      IF_ANY [Eq (c! "E"); Eq (c! "e")] 118;
      IF_ANY [Eq (c! "I"); Eq (c! "i")] 110;
      IF_NONE [0] 122 ]
  ].

(** Cases 105 to 126. *)
Definition ts_lex_cases_105 : list (list stmt) :=
  [
    [ IF_ANY [Eq (c! "}")] 207;
      IF_ANY [Eq (c! "E"); Eq (c! "e")] 118;
      IF_ANY [Eq (c! "I"); Eq (c! "i")] 114;
      IF_NONE [0] 122 ];
    [ IF_ANY [Eq (c! "}")] 207;
      IF_ANY [Eq (c! "E"); Eq (c! "e")] 120;
      IF_NONE [0] 122 ];
    [ IF_ANY [Eq (c! "}")] 207;
      IF_ANY [Eq (c! "E"); Eq (c! "e")] 127;
      IF_NONE [0] 122 ];
    [ IF_ANY [Eq (c! "}")] 207;
      IF_ANY [Eq (c! "E"); Eq (c! "e")] 119;
      IF_ANY [Eq (c! "I"); Eq (c! "i")] 114;
      IF_NONE [0] 122 ];
    [ IF_ANY [Eq (c! "}")] 207;
      IF_ANY [Eq (c! "E"); Eq (c! "e")] 113;
      IF_NONE [0] 122 ];
    [ IF_ANY [Eq (c! "}")] 207;
      IF_ANY [Eq (c! "F"); Eq (c! "f")] 123;
      IF_NONE [0] 122 ];
    [ IF_ANY [Eq (c! "}")] 207;
      IF_ANY [Eq (c! "F"); Eq (c! "f")] 130;
      IF_NONE [0] 122 ];
    [ IF_ANY [Eq (c! "}")] 207;
      IF_ANY [Eq (c! "F"); Eq (c! "f")] 124;
      IF_NONE [0] 122 ];
    [ IF_ANY [Eq (c! "}")] 207;
      IF_ANY [Eq (c! "F"); Eq (c! "f")] 125;
      IF_NONE [0] 122 ];
    [ IF_ANY [Eq (c! "}")] 207;
      IF_ANY [Eq (c! "F"); Eq (c! "f")] 106;
      IF_NONE [0] 122 ];
    [ IF_ANY [Eq (c! "}")] 207;
      IF_ANY [Eq (c! "F"); Eq (c! "f")] 128;
      IF_NONE [0] 122 ];
    [ IF_ANY [Eq (c! "}")] 207;
      IF_ANY [Eq (c! "I"); Eq (c! "i")] 111;
      IF_NONE [0] 122 ];
    [ IF_ANY [Eq (c! "}")] 207;
      IF_ANY [Eq (c! "I"); Eq (c! "i")] 112;
      IF_NONE [0] 122 ];
    [ IF_ANY [Eq (c! "}")] 207;
      IF_ANY [Eq (c! "L"); Eq (c! "l")] 121;
      IF_ANY [Eq (c! "N"); Eq (c! "n")] 101;
      IF_NONE [0] 122 ];
    [ IF_ANY [Eq (c! "}")] 207;
      IF_ANY [Eq (c! "N"); Eq (c! "n")] 101;
      IF_NONE [0] 122 ];
    [ IF_ANY [Eq (c! "}")] 207;
      IF_ANY [Eq (c! "N"); Eq (c! "n")] 102;
      IF_NONE [0] 122 ];
    [ IF_ANY [Eq (c! "}")] 207;
      IF_ANY [Eq (c! "S"); Eq (c! "s")] 107;
      IF_NONE [0] 122 ];
    [ IF_ANY [Eq (c! "}")] 207;
      IF_NONE [0] 122 ];
    [ IF_ANY [Eq (c! "}")] 170;
      IF_ANY [Eq (c! "D"); Eq (c! "d")] 109;
      IF_ANY [Eq (c! "E"); Eq (c! "e")] 120;
      IF_ANY [Eq (c! "N"); Eq (c! "n")] 103;
      IF_ANY [Range (c! "A") (c! "Z"); Eq (c! "_"); Range (c! "a")
         (c! "z")] 122;
      IF_NONE [0] 126 ];
    [ IF_ANY [Eq (c! "}")] 170;
      IF_ANY [Eq (c! "D"); Eq (c! "d")] 109;
      IF_ANY [Eq (c! "N"); Eq (c! "n")] 103;
      IF_ANY [Range (c! "A") (c! "Z"); Eq (c! "_"); Range (c! "a")
         (c! "z")] 122;
      IF_NONE [0] 126 ];
    [ IF_ANY [Eq (c! "}")] 170;
      IF_ANY [Range (c! "A") (c! "Z"); Eq (c! "_"); Range (c! "a")
         (c! "z")] 122;
      IF_NONE [0] 126 ];
    [ IF_ANY [Eq (c! "}")] 170;
      IF_NONE [0] 126 ]
  ].

(** Cases 127 to 151. *)
Definition ts_lex_cases_127 : list (list stmt) :=
  [
    [ IF_ANY [Eq (c! "}")] 171;
      IF_ANY [Eq (c! "I"); Eq (c! "i")] 115;
      IF_ANY [Range (c! "A") (c! "Z"); Eq (c! "_"); Range (c! "a")
         (c! "z")] 122;
      IF_NONE [0] 129 ];
    [ IF_ANY [Eq (c! "}")] 171;
      IF_ANY [Range (c! "A") (c! "Z"); Eq (c! "_"); Range (c! "a")
         (c! "z")] 122;
      IF_NONE [0] 129 ];
    [ IF_ANY [Eq (c! "}")] 171;
      IF_NONE [0] 129 ];
    [ IF_ANY [Eq (c! "}")] 172;
      IF_ANY [Range (c! "A") (c! "Z"); Eq (c! "_"); Range (c! "a")
         (c! "z")] 122;
      IF_NONE [0] 131 ];
    [ IF_ANY [Eq (c! "}")] 172;
      IF_NONE [0] 131 ];
    [ IF_ANY [Eq (c! "+"); Eq (c! "-")] 142;
      IF_ANY [Range (c! "0") (c! "9")] 169 ];
    [ IF_ANY [Eq (c! "A"); Eq (c! "a")] 136 ];
    [ IF_ANY [Eq (c! "E"); Eq (c! "e")] 203 ];
    [ IF_ANY [Eq (c! "E"); Eq (c! "e")] 204 ];
    [ IF_ANY [Eq (c! "L"); Eq (c! "l")] 138 ];
    [ IF_ANY [Eq (c! "R"); Eq (c! "r")] 139 ];
    [ IF_ANY [Eq (c! "S"); Eq (c! "s")] 135 ];
    [ IF_ANY [Eq (c! "U"); Eq (c! "u")] 134 ];
    [ IF_ANY [Eq (c! "0"); Eq (c! "1")] 167 ];
    [ IF_ANY [Range (c! "0") (c! "9")] 168 ];
    [ IF_ANY [Range (c! "0") (c! "9")] 169 ];
    [ IF_ANY [Range (c! "0") (c! "9"); Range (c! "A") (c! "F"); Range
         (c! "a") (c! "f")] 166 ];
    [ IF_EOF 146;
      ADVANCE_MAP [(c! "#", 163); (c! "'", 30); (c! "(", 57); (c! "*",
         192); (c! "+", 184); (c! ",", 150); (c! "-", 188); (c! ".", 173);
         (c! "/", 194); (c! ":", 148); (c! ";", 147); (c! "<", 177);
         (c! "=", 178); (c! ">", 181); (c! "[", 154); (c! "^", 197);
         (c! "{", 28)]%nat;
      IF_ANY [Range (TAB) (CR); Eq (c! " ")] 206 ];
    [ IF_EOF 146;
      ADVANCE_MAP [(c! "#", 163); (c! "'", 30); (c! "(", 80); (c! ")",
         160); (c! "*", 193); (c! "+", 187); (c! ",", 150); (c! "-", 191);
         (c! ".", 173); (c! "/", 195); (c! ":", 149); (c! ";", 147);
         (c! "<", 177); (c! "=", 178); (c! ">", 181); (c! "[", 154);
         (c! "]", 155); (c! "^", 197); (c! "{", 23)]%nat;
      IF_ANY [Range (TAB) (CR); Eq (c! " ")] 206;
      IF_ANY [Range (c! "0") (c! "9")] 205 ];
    [ ACCEPT_TOKEN ts_builtin_sym_end ];
    [ ACCEPT_TOKEN anon_sym_SEMI ];
    [ ACCEPT_TOKEN anon_sym_COLON ];
    [ ACCEPT_TOKEN anon_sym_COLON;
      IF_ANY [Eq (c! "=")] 198 ];
    [ ACCEPT_TOKEN anon_sym_COMMA ];
    [ ACCEPT_TOKEN aux_sym_asmBody_token1 ]
  ].

(** Cases 152 to 188. *)
Definition ts_lex_cases_152 : list (list stmt) :=
  [
    [ ACCEPT_TOKEN aux_sym_asmBody_token2 ];
    [ ACCEPT_TOKEN aux_sym_asmBody_token3 ];
    [ ACCEPT_TOKEN anon_sym_LBRACK ];
    [ ACCEPT_TOKEN anon_sym_RBRACK ];
    [ ACCEPT_TOKEN anon_sym_LPAREN;
      IF_ANY [Eq (c! "*")] 20 ];
    [ ACCEPT_TOKEN anon_sym_LPAREN;
      IF_ANY [Eq (c! "*")] 29 ];
    [ ACCEPT_TOKEN anon_sym_LPAREN;
      IF_ANY [Eq (c! "*")] 25 ];
    [ ACCEPT_TOKEN anon_sym_LPAREN;
      IF_ANY [Eq (c! "*")] 27 ];
    [ ACCEPT_TOKEN anon_sym_RPAREN ];
    [ ACCEPT_TOKEN anon_sym_DOT_DOT ];
    [ ACCEPT_TOKEN aux_sym__literalString_token1 ];
    [ ACCEPT_TOKEN anon_sym_POUND ];
    [ ACCEPT_TOKEN aux_sym__literalInt_token1;
      IF_ANY [Eq (c! ".")] 141;
      IF_ANY [Eq (c! "_")] 164;
      IF_ANY [Eq (c! "E"); Eq (c! "e")] 132;
      IF_ANY [Range (c! "0") (c! "9")] 164 ];
    [ ACCEPT_TOKEN aux_sym__literalInt_token1;
      IF_ANY [Range (c! "0") (c! "9"); Eq (c! "_")] 165 ];
    [ ACCEPT_TOKEN aux_sym__literalInt_token2;
      IF_ANY [Range (c! "0") (c! "9"); Range (c! "A") (c! "F"); Eq
         (c! "_"); Range (c! "a") (c! "f")] 166 ];
    [ ACCEPT_TOKEN aux_sym__literalInt_token3;
      IF_ANY [Eq (c! "0"); Eq (c! "1"); Eq (c! "_")] 167 ];
    [ ACCEPT_TOKEN aux_sym__literalFloat_token1;
      IF_ANY [Eq (c! "E"); Eq (c! "e")] 132;
      IF_ANY [Range (c! "0") (c! "9"); Eq (c! "_")] 168 ];
    [ ACCEPT_TOKEN aux_sym__literalFloat_token1;
      IF_ANY [Range (c! "0") (c! "9"); Eq (c! "_")] 169 ];
    [ ACCEPT_TOKEN aux_sym_ppUsesBlock_token1 ];
    [ ACCEPT_TOKEN aux_sym_ppUsesBlock_token2 ];
    [ ACCEPT_TOKEN aux_sym_ppUsesBlock_token3 ];
    [ ACCEPT_TOKEN anon_sym_DOT ];
    [ ACCEPT_TOKEN anon_sym_DOT;
      IF_ANY [Eq (c! ".")] 161 ];
    [ ACCEPT_TOKEN sym_kLt ];
    [ ACCEPT_TOKEN sym_kLt;
      IF_ANY [Eq (c! "=")] 182 ];
    [ ACCEPT_TOKEN sym_kLt;
      IF_ANY [Eq (c! "=")] 182;
      IF_ANY [Eq (c! ">")] 179 ];
    [ ACCEPT_TOKEN sym_kEq ];
    [ ACCEPT_TOKEN sym_kNeq ];
    [ ACCEPT_TOKEN sym_kGt ];
    [ ACCEPT_TOKEN sym_kGt;
      IF_ANY [Eq (c! "=")] 183 ];
    [ ACCEPT_TOKEN sym_kLte ];
    [ ACCEPT_TOKEN sym_kGte ];
    [ ACCEPT_TOKEN sym_kAdd ];
    [ ACCEPT_TOKEN sym_kAdd;
      IF_ANY [Eq (c! ".")] 141;
      IF_ANY [Eq (c! "=")] 199;
      IF_ANY [Range (c! "0") (c! "9")] 164 ];
    [ ACCEPT_TOKEN sym_kAdd;
      IF_ANY [Eq (c! ".")] 141;
      IF_ANY [Range (c! "0") (c! "9")] 164 ];
    [ ACCEPT_TOKEN sym_kAdd;
      IF_ANY [Eq (c! "=")] 199 ];
    [ ACCEPT_TOKEN sym_kSub ]
  ].

(** Cases 189 to 209. *)
Definition ts_lex_cases_189 : list (list stmt) :=
  [
    [ ACCEPT_TOKEN sym_kSub;
      IF_ANY [Eq (c! ".")] 141;
      IF_ANY [Eq (c! "=")] 200;
      IF_ANY [Range (c! "0") (c! "9")] 164 ];
    [ ACCEPT_TOKEN sym_kSub;
      IF_ANY [Eq (c! ".")] 141;
      IF_ANY [Range (c! "0") (c! "9")] 164 ];
    [ ACCEPT_TOKEN sym_kSub;
      IF_ANY [Eq (c! "=")] 200 ];
    [ ACCEPT_TOKEN sym_kMul ];
    [ ACCEPT_TOKEN sym_kMul;
      IF_ANY [Eq (c! "=")] 201 ];
    [ ACCEPT_TOKEN sym_kFdiv;
      IF_ANY [Eq (c! "/")] 209 ];
    [ ACCEPT_TOKEN sym_kFdiv;
      IF_ANY [Eq (c! "/")] 209;
      IF_ANY [Eq (c! "=")] 202 ];
    [ ACCEPT_TOKEN sym_kAt ];
    [ ACCEPT_TOKEN sym_kHat ];
    [ ACCEPT_TOKEN sym_kAssign ];
    [ ACCEPT_TOKEN sym_kAssignAdd ];
    [ ACCEPT_TOKEN sym_kAssignSub ];
    [ ACCEPT_TOKEN sym_kAssignMul ];
    [ ACCEPT_TOKEN sym_kAssignDiv ];
    [ ACCEPT_TOKEN sym_kTrue ];
    [ ACCEPT_TOKEN sym_kFalse ];
    [ ACCEPT_TOKEN sym_labelNumber;
      IF_ANY [Range (c! "0") (c! "9")] 205 ];
    [ ACCEPT_TOKEN sym__space;
      IF_ANY [Range (TAB) (CR); Eq (c! " ")] 206 ];
    [ ACCEPT_TOKEN sym_ppDirective ];
    [ ACCEPT_TOKEN sym_comment ];
    [ ACCEPT_TOKEN sym_comment;
      IF_NONE [0; LF; CR] 209 ]
  ].

(** The cases of [ts_lex]. *)
Definition ts_lex_cases : list (list stmt) :=
  ts_lex_cases_0 ++ ts_lex_cases_5 ++ ts_lex_cases_10 ++ ts_lex_cases_16 ++
  ts_lex_cases_31 ++ ts_lex_cases_39 ++ ts_lex_cases_52 ++ ts_lex_cases_77
  ++ ts_lex_cases_105 ++ ts_lex_cases_127 ++ ts_lex_cases_152 ++
  ts_lex_cases_189.

(** The cases of [ts_lex_keywords]. *)
Definition ts_lex_keywords_cases : list (list stmt) :=
  [ [ ACCEPT_TOKEN ts_builtin_sym_end ] ].
