(* ===== verification/LexDfa.v ===== *)
(** * The lexer macros of [parser.h] and the lexing function they build

    [lex] is the loop that [START_LEXER], [ADVANCE], [ADVANCE_MAP],
    [ACCEPT_TOKEN] and [END_STATE] expand to around the cases of a [switch];
    [ts_lex] and [ts_lex_keywords] are its two instances.  The
    specification [munch] is the longest match of the automaton on a
    character list; [lex_munch] shows that the loop computes it for every
    table that passes [well_formed] and every lexer, and [munch_longest]
    characterises it through the runs of the automaton. *)

From S2P Require Import Prelude.
From S2P Require Import Lexer.
From S2P Require Import Symbols.
From S2P Require Import LexTable.

(** ** The code *)

Definition test_holds (lookahead : Z) (t : test) : bool :=
  match t with
  | Eq c => lookahead =? c
  | Range lo hi => (lo <=? lookahead) && (lookahead <=? hi)
  end.

(** The search loop of [ADVANCE_MAP]. *)
Definition advance_map (map : list (Z * nat)) (lookahead : Z) : option nat :=
  snd <$> List.find (λ e, e.1 =? lookahead) map.

(** How a case ends: at [goto next_state] with the new state, or at
    [END_STATE()]. *)
Inductive flow (L : Type) : Type :=
  | NextState (state : nat) (result : bool) (l : L)
  | EndState (result : bool) (l : L).
Arguments NextState {L} state result l.
Arguments EndState {L} result l.

Section code.
Context `{TSLexer L}.

(** The statements of a case, in order. *)
Fixpoint exec_case (body : list stmt) (lookahead : Z) (eof result : bool)
    (l : L) : flow L :=
  match body with
  | [] => EndState result l
  | s :: body' =>
    match s with
    | ACCEPT_TOKEN sym =>
      exec_case body' lookahead eof true
        (mark_end (set_result_symbol (Z.of_nat (symbol_index sym)) l))
    | IF_EOF n =>
      if eof then NextState n result l
      else exec_case body' lookahead eof result l
    | ADVANCE_MAP map =>
      match advance_map map lookahead with
      | Some n => NextState n result l
      | None => exec_case body' lookahead eof result l
      end
    | IF_ANY tests n =>
      if existsb (test_holds lookahead) tests then NextState n result l
      else exec_case body' lookahead eof result l
    | IF_NONE chars n =>
      if forallb (λ c, negb (lookahead =? c)) chars then NextState n result l
      else exec_case body' lookahead eof result l
    end
  end.

(** The loop around the [switch], from the label [start]. *)
Fixpoint lex (cases : list (list stmt)) (fuel : nat) (l : L) (state : nat)
    (result : bool) : res (bool * L) :=
  match fuel with
  | O => OutOfFuel
  | S f =>
    match cases !! state with
    | None => Ret (false, l)
    | Some body =>
      match exec_case body (lookahead l) (eof l) result l with
      | NextState n result l => lex cases f (advance false l) n result
      | EndState result l => Ret (result, l)
      end
    end
  end.

Definition ts_lex (fuel : nat) (l : L) (state : nat) : res (bool * L) :=
  lex ts_lex_cases fuel l state false.

Definition ts_lex_keywords (fuel : nat) (l : L) (state : nat) : res (bool * L) :=
  lex ts_lex_keywords_cases fuel l state false.
End code.

(** ** The automaton of a table *)

Definition stmt_target (lookahead : Z) (eof : bool) (s : stmt) : option nat :=
  match s with
  | ACCEPT_TOKEN _ => None
  | IF_EOF n => if eof then Some n else None
  | ADVANCE_MAP map => advance_map map lookahead
  | IF_ANY tests n => if existsb (test_holds lookahead) tests then Some n else None
  | IF_NONE chars n =>
    if forallb (λ c, negb (lookahead =? c)) chars then Some n else None
  end.

(** The state a case moves to. *)
Fixpoint case_target (body : list stmt) (lookahead : Z) (eof : bool) : option nat :=
  match body with
  | [] => None
  | s :: body' =>
    match stmt_target lookahead eof s with
    | Some n => Some n
    | None => case_target body' lookahead eof
    end
  end.

Definition case_accept (body : list stmt) : option ts_symbol :=
  match body with ACCEPT_TOKEN sym :: _ => Some sym | _ => None end.

Definition is_accept (s : stmt) : bool :=
  match s with ACCEPT_TOKEN _ => true | _ => false end.

(** The states a case mentions. *)
Definition stmt_targets (s : stmt) : list nat :=
  match s with
  | ACCEPT_TOKEN _ => []
  | ADVANCE_MAP map => map.*2
  | IF_EOF n | IF_ANY _ n | IF_NONE _ n => [n]
  end.

(** What the loop needs of a case: an [ACCEPT_TOKEN] can only come first,
    the targets exist, and the lookahead [0] leads nowhere. *)
Definition case_ok (n : nat) (body : list stmt) : bool :=
  forallb (λ s, negb (is_accept s)) (tail body)
  && forallb (λ s, forallb (λ t, t <? n)%nat (stmt_targets s)) body
  && match case_target body 0 false with None => true | Some _ => false end.

(** After the move at the end of the input there is no further move. *)
Definition eof_ok (cases : list (list stmt)) (body : list stmt) : bool :=
  match case_target body 0 true with
  | None => true
  | Some n =>
    match cases !! n with
    | None => false
    | Some body' =>
      match case_target body' 0 true with None => true | Some _ => false end
    end
  end.

Definition well_formed (cases : list (list stmt)) : bool :=
  forallb (λ body, case_ok (length cases) body && eof_ok cases body) cases.

Section automaton.
Context (cases : list (list stmt)).

Definition accept (s : nat) : option ts_symbol := cases !! s ≫= case_accept.

Definition step (s : nat) (c : Z) : option nat :=
  cases !! s ≫= λ body, case_target body c false.

Definition step_eof (s : nat) : option nat :=
  cases !! s ≫= λ body, case_target body 0 true.

(** The symbol accepted in [s] when [cs] is left. *)
Definition accept_at (s : nat) (cs : list Z) : option ts_symbol :=
  match cs, step_eof s ≫= accept with
  | [], Some t => Some t
  | _, _ => accept s
  end.

(** The longest match from [s]: its symbol and the input after it. *)
Fixpoint munch (s : nat) (cs : list Z) : option (ts_symbol * list Z) :=
  let here := (λ t, (t, cs)) <$> accept_at s cs in
  match cs with
  | [] => here
  | c :: cs' =>
    match step s c ≫= λ s', munch s' cs' with
    | Some r => Some r
    | None => here
    end
  end.

(** The state reached by the word [w]. *)
Fixpoint run (s : nat) (w : list Z) : option nat :=
  match w with
  | [] => Some s
  | c :: w' => step s c ≫= λ s', run s' w'
  end.
End automaton.

#[global] Arguments accept_at : simpl never.

(** ** The loop computes the longest match *)

Lemma case_target_stmt body c e n :
  case_target body c e = Some n → ∃ s, s ∈ body ∧ stmt_target c e s = Some n.
Proof.
  induction body as [|s body IH]; simpl; [done|].
  destruct (stmt_target c e s) as [m|] eqn:Hs; cycle 1.
  { intros (s' & ? & ?)%IH. exists s'. split; [by right|done]. }
  intros [= <-]. exists s. split; [by left|done].
Qed.

Lemma stmt_target_targets c e s n : stmt_target c e s = Some n → n ∈ stmt_targets s.
Proof.
  destruct s as [sym|k|map|ts k|cs k]; simpl; intros Hs; repeat case_match; simplify_eq;
    try by apply list_elem_of_singleton.
  unfold advance_map in Hs. apply fmap_Some in Hs as (e' & Hf%find_some & ->).
  destruct Hf as [Hin%list_elem_of_In _]. by apply list_elem_of_fmap_2.
Qed.

Section exec.
Context `{TSLexerOk L}.
Implicit Types l : L.

(** The effect of a leading [ACCEPT_TOKEN]. *)
Definition accept_effect (body : list stmt) (result : bool) (l : L) : bool * L :=
  match case_accept body with
  | Some sym =>
    (true, mark_end (set_result_symbol (Z.of_nat (symbol_index sym)) l))
  | None => (result, l)
  end.

Lemma exec_moves body c e result l :
  forallb (λ s, negb (is_accept s)) body = true →
  exec_case body c e result l
  = match case_target body c e with
    | Some n => NextState n result l
    | None => EndState result l
    end.
Proof.
  induction body as [|s body IH]; simpl; [done|].
  intros [Hs Hb]%andb_true_iff.
  destruct s; simpl in *; [done|..]; rewrite IH by done; repeat case_match; congruence.
Qed.

Lemma exec_case_spec n body c e result l :
  case_ok n body = true →
  exec_case body c e result l
  = let '(result', l') := accept_effect body result l in
    match case_target body c e with
    | Some n => NextState n result' l'
    | None => EndState result' l'
    end.
Proof.
  unfold case_ok. rewrite !andb_true_iff. intros [[Ha _] _].
  destruct body as [|s body]; [done|]. unfold accept_effect.
  destruct (is_accept s) eqn:Hs.
  - destruct s; try done. simpl. by rewrite exec_moves.
  - assert (case_accept (s :: body) = None) as -> by (by destruct s).
    apply exec_moves. simpl in *. by rewrite Hs, Ha.
Qed.

Context (cases : list (list stmt)) (Hok : well_formed cases = true).

Lemma well_formed_lookup s body :
  cases !! s = Some body →
  case_ok (length cases) body = true ∧ eof_ok cases body = true.
Proof.
  intros Hs. unfold well_formed in Hok. rewrite forallb_forall in Hok.
  apply andb_true_iff, Hok, list_elem_of_In. by eapply list_elem_of_lookup_2.
Qed.

Lemma case_target_lt s body c e n :
  cases !! s = Some body → case_target body c e = Some n → (n < length cases)%nat.
Proof.
  intros [Hc _]%well_formed_lookup (st & Hst & Hn%stmt_target_targets)%case_target_stmt.
  unfold case_ok in Hc. rewrite !andb_true_iff in Hc. destruct Hc as [[_ Hc] _].
  rewrite forallb_forall in Hc. specialize (Hc st (proj1 (list_elem_of_In _ _) Hst)).
  rewrite forallb_forall in Hc. specialize (Hc n (proj1 (list_elem_of_In _ _) Hn)).
  by apply Nat.ltb_lt in Hc.
Qed.

Lemma step_nul s : step cases s 0 = None.
Proof.
  unfold step. destruct (cases !! s) as [body|] eqn:Hs; simpl; [|done].
  apply well_formed_lookup in Hs as [Hc _]. unfold case_ok in Hc.
  rewrite !andb_true_iff in Hc. destruct Hc as [_ Hc]. by case_match.
Qed.

Lemma step_lt s c n : step cases s c = Some n → (n < length cases)%nat.
Proof.
  unfold step. destruct (cases !! s) eqn:Hs; simpl; [|done]. by eapply case_target_lt.
Qed.

(** What the loop leaves behind for a verdict of [munch]. *)
Definition verdict (r : option (ts_symbol * list Z)) (result : bool) (l l' : L)
    (b : bool) : Prop :=
  match r with
  | Some (t, tl) =>
    b = true ∧ result_symbol l' = Z.of_nat (symbol_index t) ∧ token_end l' = tl
  | None =>
    b = result ∧ result_symbol l' = result_symbol l ∧ token_end l' = token_end l
  end.

Lemma accept_effect_verdict s body result l :
  cases !! s = Some body →
  let '(result', l') := accept_effect body result l in
  verdict ((λ t, (t, rest l)) <$> accept cases s) result l l' result'
  ∧ rest l' = rest l.
Proof.
  intros Hs. unfold accept_effect, accept. rewrite Hs. simpl.
  destruct (case_accept body); simpl; [|done].
  by rewrite result_mark_end, result_set_result, token_end_mark_end, rest_mark_end,
    !rest_set_result.
Qed.

(** A later match overrides an earlier one. *)
Lemma verdict_trans r1 r2 result result1 l l1 l2 b :
  verdict r1 result l l1 result1 → verdict r2 result1 l1 l2 b →
  verdict (match r2 with Some r => Some r | None => r1 end) result l l2 b.
Proof.
  destruct r2 as [[t2 tl2]|]; simpl; [done|]. intros Hv (-> & Hr & He).
  destruct r1 as [[t1 tl1]|]; simpl in *; by rewrite Hr, He.
Qed.

Lemma verdict_advance r result l l' b :
  verdict r result (advance false l) l' b → verdict r result l l' b.
Proof.
  unfold verdict. by rewrite result_advance, token_end_advance.
Qed.

(** At the end of the input. *)
Lemma lex_eof s body fuel l result :
  cases !! s = Some body → rest l = [] → case_target body 0 true = None →
  (0 < fuel)%nat →
  ∃ b l', lex cases fuel l s result = Ret (b, l')
    ∧ verdict ((λ t, (t, [])) <$> accept cases s) result l l' b.
Proof.
  intros Hs Hr Ht Hf. destruct fuel as [|f]; [lia|]. cbn [lex]. rewrite Hs.
  rewrite lookahead_rest, eof_rest, Hr. simpl peek.
  rewrite (exec_case_spec (length cases)) by (by eapply well_formed_lookup).
  pose proof (accept_effect_verdict s body result l Hs) as Hv.
  destruct (accept_effect body result l) as [r1 l1]. rewrite Ht.
  rewrite Hr in Hv. destruct Hv. eauto.
Qed.

(** The loop terminates after at most one more iteration than there are
    characters, without leaving the table, with the verdict of [munch]. *)
Lemma lex_munch fuel s l result :
  (s < length cases)%nat → (length (rest l) + 1 < fuel)%nat →
  ∃ b l', lex cases fuel l s result = Ret (b, l')
    ∧ verdict (munch cases s (rest l)) result l l' b.
Proof.
  revert s l result. induction fuel as [|f IH]; intros s l result Hlt Hf; [lia|].
  destruct (lookup_lt_is_Some_2 _ _ Hlt) as [body Hs].
  destruct (well_formed_lookup _ _ Hs) as [Hc He].
  cbn [lex]. rewrite Hs, lookahead_rest, eof_rest.
  rewrite (exec_case_spec (length cases)) by done.
  pose proof (accept_effect_verdict s body result l Hs) as Hv.
  destruct (accept_effect body result l) as [r1 l1]. destruct Hv as [Hv Hr1].
  destruct (rest l) as [|c cs] eqn:Hr; simpl peek.
  - simpl munch. unfold accept_at, step_eof. rewrite Hs. simpl.
    unfold eof_ok in He.
    destruct (case_target body 0 true) as [n|] eqn:Ht; simpl; cycle 1.
    { eexists _, _. split; [done|]. done. }
    destruct (cases !! n) as [body'|] eqn:Hn; [|done].
    destruct (case_target body' 0 true) eqn:Ht'; [done|].
    destruct (lex_eof n body' f (advance false l1) r1) as (b & l' & -> & Hv');
      [done|by rewrite rest_advance, Hr1|done|simpl in Hf; lia|].
    eexists _, _. split; [done|].
    apply verdict_advance in Hv'. pose proof (verdict_trans _ _ _ _ _ _ _ _ Hv Hv') as Hv2.
    by destruct (accept cases n).
  - cbn [munch]. unfold step, accept_at. rewrite Hs. simpl.
    destruct (case_target body c false) as [n|] eqn:Ht; simpl; cycle 1.
    { eexists _, _. split; [done|]. done. }
    destruct (IH n (advance false l1) r1) as (b & l' & -> & Hv').
    + by eapply case_target_lt.
    + rewrite rest_advance, Hr1. simpl in *. lia.
    + eexists _, _. split; [done|]. rewrite rest_advance, Hr1 in Hv'.
      apply verdict_advance in Hv'. by eapply verdict_trans.
Qed.
End exec.

(** ** The longest match through runs *)

Section longest.
Context (cases : list (list stmt)).

(** The symbol of the prefix [w] of [w ++ tl], if the automaton accepts it. *)
Definition matched (s : nat) (w tl : list Z) : option ts_symbol :=
  run cases s w ≫= λ s', accept_at cases s' tl.

(** [longest s cs t tl]: the longest accepted prefix of [cs] is what precedes
    [tl], and it is accepted as [t]. *)
Definition longest (s : nat) (cs : list Z) (t : ts_symbol) (tl : list Z) : Prop :=
  ∃ w, cs = w ++ tl ∧ matched s w tl = Some t
    ∧ ∀ w' tl', cs = w' ++ tl' → (length w < length w')%nat → matched s w' tl' = None.

Lemma munch_spec s cs :
  match munch cases s cs with
  | Some (t, tl) => longest s cs t tl
  | None => ∀ w tl, cs = w ++ tl → matched s w tl = None
  end.
Proof.
  revert s. induction cs as [|c cs IH]; intros s; cbn [munch].
  { destruct (accept_at cases s []) as [t|] eqn:Ha; simpl.
    - exists []. split; [done|]. split; [done|]. intros w' tl' Hn.
      symmetry in Hn. apply app_nil in Hn as [-> ->]. simpl. lia.
    - intros w tl Hn. symmetry in Hn. by apply app_nil in Hn as [-> ->]. }
  assert (∀ w tl, c :: cs = w ++ tl → (0 < length w)%nat →
    ∃ w1, w = c :: w1 ∧ cs = w1 ++ tl
      ∧ matched s w tl = step cases s c ≫= λ s', matched s' w1 tl) as Hcons.
  { intros [|c' w1] tl; simpl; [lia|]. intros [= -> ->] _. exists w1.
    split_and!; [done..|]. unfold matched. simpl. by destruct (step cases s c'). }
  destruct (step cases s c) as [s'|] eqn:Hs; simpl in *; cycle 1.
  { destruct (accept_at cases s (c :: cs)) as [t|] eqn:Ha; simpl.
    - exists []. split_and!; [done..|]. intros w' tl' Hw Hl.
      by destruct (Hcons w' tl' Hw Hl) as (? & _ & _ & ->).
    - intros [|c' w] tl Hw; [simpl in Hw; by subst tl|].
      destruct (Hcons (c' :: w) tl Hw) as (? & _ & _ & ->); [simpl; lia|done]. }
  specialize (IH s'). destruct (munch cases s' cs) as [[t tl]|].
  { destruct IH as (w & -> & Hm & Hmax). exists (c :: w). split_and!; [done|..].
    - unfold matched in *. simpl. by rewrite Hs.
    - intros w' tl' Hw Hl. destruct (Hcons w' tl' Hw) as (w1 & -> & Hw1 & ->).
      { simpl in *; lia. }
      apply Hmax; [done|]. simpl in Hl. lia. }
  destruct (accept_at cases s (c :: cs)) as [t|] eqn:Ha; simpl.
  - exists []. split_and!; [done..|]. intros w' tl' Hw Hl.
    destruct (Hcons w' tl' Hw Hl) as (w1 & _ & Hw1 & ->). by apply IH.
  - intros [|c' w] tl Hw; [simpl in Hw; by subst tl|].
    destruct (Hcons (c' :: w) tl Hw) as (w1 & _ & Hw1 & ->); [simpl; lia|]. by apply IH.
Qed.

Lemma longest_deterministic s cs t1 tl1 t2 tl2 :
  longest s cs t1 tl1 → longest s cs t2 tl2 → t1 = t2 ∧ tl1 = tl2.
Proof.
  intros (w1 & Hw1 & Hm1 & Hx1) (w2 & Hw2 & Hm2 & Hx2).
  destruct (decide (length w1 = length w2)) as [Hl|Hl].
  { rewrite Hw1 in Hw2. apply app_inj_1 in Hw2 as [-> ->]; [|done].
    split; [congruence|done]. }
  destruct (decide (length w1 < length w2)%nat).
  - by rewrite (Hx1 _ _ Hw2) in Hm2.
  - rewrite (Hx2 _ _ Hw1) in Hm1; [done|lia].
Qed.

Lemma munch_longest s cs t tl : munch cases s cs = Some (t, tl) ↔ longest s cs t tl.
Proof.
  pose proof (munch_spec s cs) as Hm. destruct (munch cases s cs) as [[t' tl']|].
  - split; [by intros [= <- <-]|]. intros Hl.
    by destruct (longest_deterministic _ _ _ _ _ _ Hm Hl) as [-> ->].
  - split; [done|]. intros (w & -> & Hw & _). by rewrite Hm in Hw.
Qed.
End longest.
