(* ===== verification/Regex.v ===== *)
(** * Regular expressions and their derivatives

    The reference language for the generated lexer: the token patterns of
    the grammar are regular expressions over characters, [lang] is their
    meaning, and [deriv] computes Brzozowski derivatives.  A check that an
    automaton and a set of expressions agree (in [LexCheck.v]) explores
    derivatives; the lemmas here say that they mean what they should. *)

From S2P Require Import Prelude.

Inductive regex : Set :=
  | Void
  | Eps
  | Cls (neg : bool) (ranges : list (Z * Z))
  | Seq (r1 r2 : regex)
  | Alt (r1 r2 : regex)
  | Star (r : regex)
  | Diff (r1 r2 : regex).

Definition in_ranges (c : Z) (ranges : list (Z * Z)) : bool :=
  existsb (λ r, (r.1 <=? c) && (c <=? r.2)) ranges.

Definition in_class (neg : bool) (ranges : list (Z * Z)) (c : Z) : bool :=
  xorb neg (in_ranges c ranges).

(** The words an expression stands for. *)
Fixpoint lang (r : regex) (w : list Z) : Prop :=
  match r with
  | Void => False
  | Eps => w = []
  | Cls neg ranges => ∃ c, w = [c] ∧ in_class neg ranges c = true
  | Seq r1 r2 => ∃ u v, w = u ++ v ∧ lang r1 u ∧ lang r2 v
  | Alt r1 r2 => lang r1 w ∨ lang r2 w
  | Star r => ∃ ws, w = concat ws ∧ Forall (lang r) ws
  | Diff r1 r2 => lang r1 w ∧ ¬ lang r2 w
  end.

(** ** Equality *)

Definition range_eqb (x y : Z * Z) : bool := (x.1 =? y.1) && (x.2 =? y.2).

Fixpoint list_eqb {A} (eqb : A → A → bool) (xs ys : list A) : bool :=
  match xs, ys with
  | [], [] => true
  | x :: xs', y :: ys' => eqb x y && list_eqb eqb xs' ys'
  | _, _ => false
  end.

Lemma list_eqb_sound {A} (eqb : A → A → bool) xs ys :
  (∀ x y, eqb x y = true → x = y) → list_eqb eqb xs ys = true → xs = ys.
Proof.
  intros Hs. revert ys. induction xs as [|x xs IH]; intros [|y ys]; simpl; try done.
  intros [Hx Hxs]%andb_true_iff. f_equal; auto.
Qed.

Fixpoint regex_eqb (r1 r2 : regex) : bool :=
  match r1, r2 with
  | Void, Void | Eps, Eps => true
  | Cls n1 rs1, Cls n2 rs2 => Bool.eqb n1 n2 && list_eqb range_eqb rs1 rs2
  | Seq a1 b1, Seq a2 b2 | Alt a1 b1, Alt a2 b2 | Diff a1 b1, Diff a2 b2 =>
    regex_eqb a1 a2 && regex_eqb b1 b2
  | Star a1, Star a2 => regex_eqb a1 a2
  | _, _ => false
  end.

Lemma regex_eqb_sound r1 r2 : regex_eqb r1 r2 = true → r1 = r2.
Proof.
  revert r2. induction r1 as [| |n rs|a IHa b IHb|a IHa b IHb|a IHa|a IHa b IHb];
    intros []; simpl; try done; rewrite ?andb_true_iff.
  2-3,5: intros [? ?]; f_equal; auto.
  - intros [->%eqb_prop Hr]. f_equal. revert Hr. apply list_eqb_sound.
    intros [] []. unfold range_eqb. simpl. intros. f_equal; lia.
  - intros. f_equal. auto.
Qed.

(** ** Smart constructors

    They keep the set of derivatives small; each preserves the language. *)

Definition mk_seq (r1 r2 : regex) : regex :=
  match r1, r2 with
  | Void, _ | _, Void => Void
  | Eps, r | r, Eps => r
  | _, _ => Seq r1 r2
  end.

(** Whether [r] is one of the alternatives of [rs]. *)
Fixpoint alt_mem (r rs : regex) : bool :=
  regex_eqb r rs
  || match rs with Alt a b => regex_eqb r a || alt_mem r b | _ => false end.

Fixpoint mk_alt (r1 r2 : regex) : regex :=
  match r1 with
  | Void => r2
  | Alt a b => mk_alt a (mk_alt b r2)
  | _ =>
    match r2 with
    | Void => r1
    | _ => if alt_mem r1 r2 then r2 else Alt r1 r2
    end
  end.

(** Every word. *)
Definition any_text : regex := Star (Cls true []).

Lemma any_text_lang w : lang any_text w.
Proof.
  exists ((λ c, [c]) <$> w). split.
  - induction w as [|c w IH]; [done|]. simpl. f_equal. apply IH.
  - apply Forall_fmap, Forall_forall. intros c _. by exists c.
Qed.

Definition mk_diff (r1 r2 : regex) : regex :=
  match r1, r2 with
  | Void, _ => Void
  | _, Void => r1
  | _, _ => if regex_eqb r2 any_text then Void else Diff r1 r2
  end.

Lemma seq_eps_l r w : lang (Seq Eps r) w ↔ lang r w.
Proof.
  simpl. split; [by intros (u & v & -> & -> & ?)|]. intros. by exists [], w.
Qed.

Lemma seq_eps_r r w : lang (Seq r Eps) w ↔ lang r w.
Proof.
  simpl. split; [intros (u & v & -> & ? & ->); by rewrite app_nil_r|].
  intros. exists w, []. by rewrite app_nil_r.
Qed.

Lemma mk_seq_lang r1 r2 w : lang (mk_seq r1 r2) w ↔ lang (Seq r1 r2) w.
Proof.
  destruct r1; try (destruct r2); simpl mk_seq; rewrite ?seq_eps_l, ?seq_eps_r;
    simpl; naive_solver.
Qed.

Lemma alt_mem_lang r rs w : alt_mem r rs = true → lang r w → lang rs w.
Proof.
  induction rs as [| |n rs|a IHa b IHb|a IHa b IHb|a IHa|a IHa b IHb]; cbn [alt_mem];
    rewrite ?orb_false_r; try by intros ->%regex_eqb_sound.
  rewrite !orb_true_iff. intros [->%regex_eqb_sound|[->%regex_eqb_sound|Hm]] Hr; [done|..].
  - by left.
  - right. auto.
Qed.

Lemma mk_alt_lang r1 r2 w : lang (mk_alt r1 r2) w ↔ lang r1 w ∨ lang r2 w.
Proof.
  assert (∀ r r2, r2 = Void ∨ r2 ≠ Void →
    lang (match r2 with Void => r | _ => if alt_mem r r2 then r2 else Alt r r2 end) w
    ↔ lang r w ∨ lang r2 w) as Hbase.
  { intros r r0 _. destruct (alt_mem r r0) eqn:Hm.
    - pose proof (alt_mem_lang r r0 w Hm). destruct r0; simpl in *; naive_solver.
    - destruct r0; simpl; naive_solver. }
  revert r2. induction r1 as [| |n rs|a IHa b IHb|a IHa b IHb|a IHa|a IHa b IHb];
    intros r2; try (apply Hbase; destruct r2; naive_solver).
  - simpl. naive_solver.
  - simpl. rewrite IHa, IHb. naive_solver.
Qed.

Lemma mk_diff_lang r1 r2 w : lang (mk_diff r1 r2) w ↔ lang r1 w ∧ ¬ lang r2 w.
Proof.
  assert (∀ r r', lang (if regex_eqb r' any_text then Void else Diff r r') w
    ↔ lang r w ∧ ¬ lang r' w) as Hd.
  { intros r r'. destruct (regex_eqb r' any_text) eqn:E; [|done].
    apply regex_eqb_sound in E as ->. pose proof (any_text_lang w). naive_solver. }
  unfold mk_diff. destruct r1; try (destruct r2; try apply Hd; simpl; tauto).
Qed.

(** ** Derivatives *)

Fixpoint nullable (r : regex) : bool :=
  match r with
  | Void | Cls _ _ => false
  | Eps | Star _ => true
  | Seq r1 r2 => nullable r1 && nullable r2
  | Alt r1 r2 => nullable r1 || nullable r2
  | Diff r1 r2 => nullable r1 && negb (nullable r2)
  end.

Fixpoint deriv (c : Z) (r : regex) : regex :=
  match r with
  | Void | Eps => Void
  | Cls neg ranges => if in_class neg ranges c then Eps else Void
  | Seq r1 r2 =>
    let d := mk_seq (deriv c r1) r2 in
    if nullable r1 then mk_alt d (deriv c r2) else d
  | Alt r1 r2 => mk_alt (deriv c r1) (deriv c r2)
  | Star r1 => mk_seq (deriv c r1) (Star r1)
  | Diff r1 r2 => mk_diff (deriv c r1) (deriv c r2)
  end.

Lemma nullable_lang r : nullable r = true ↔ lang r [].
Proof.
  induction r as [| |n rs|a IHa b IHb|a IHa b IHb|a IHa|a IHa b IHb]; simpl.
  - done.
  - done.
  - split; [done|]. by intros (c & ? & _).
  - rewrite andb_true_iff, IHa, IHb. split; [intros []; by exists [], []|].
    by intros (u & v & [-> ->]%symmetry%app_nil & ? & ?).
  - rewrite orb_true_iff, IHa, IHb. done.
  - split; [|done]. intros _. by exists [].
  - by rewrite andb_true_iff, negb_true_iff, <- not_true_iff_false, IHa, IHb.
Qed.

(** A non-empty word of a [Star] starts with a non-empty word. *)
Lemma star_cons (P : list Z → Prop) ws c w :
  Forall P ws → c :: w = concat ws →
  ∃ u ws', P (c :: u) ∧ Forall P ws' ∧ w = u ++ concat ws'.
Proof.
  induction 1 as [|[|c' u] ws Hu Hws IH]; simpl; [done|done|].
  intros [= <- ->]. by exists u, ws.
Qed.

Lemma deriv_lang c r w : lang (deriv c r) w ↔ lang r (c :: w).
Proof.
  revert w. induction r as [| |n rs|a IHa b IHb|a IHa b IHb|a IHa|a IHa b IHb];
    intros w; cbn [deriv].
  - done.
  - done.
  - simpl. destruct (in_class n rs c) eqn:Hc; simpl.
    + split; [intros ->; eauto|]. by intros (c' & [= -> ->] & _).
    + split; [done|]. intros (c' & [= -> ->] & ?). congruence.
  - assert (lang (Seq a b) (c :: w) ↔ lang (Seq (deriv c a) b) w
      ∨ (nullable a = true ∧ lang b (c :: w))) as ->.
    { rewrite nullable_lang. simpl. split.
      - intros ([|c' u] & v & Hw & Ha & Hb); simpl in *; [right; by subst|].
        simplify_eq. left. exists u, v. by rewrite IHa.
      - intros [(u & v & -> & Ha & Hb)|[Ha Hb]].
        + exists (c :: u), v. by rewrite <- IHa.
        + by exists [], (c :: w). }
    destruct (nullable a); rewrite ?mk_alt_lang, mk_seq_lang, ?IHb; naive_solver.
  - rewrite mk_alt_lang. simpl. by rewrite IHa, IHb.
  - rewrite mk_seq_lang. simpl. split.
    + intros (u & v & -> & Hu & ws & -> & Hws). exists ((c :: u) :: ws).
      split; [done|]. constructor; [by apply IHa|done].
    + intros (ws & Hw & Hws). destruct (star_cons _ _ _ _ Hws Hw) as (u & ws' & ? & ? & ->).
      exists u, (concat ws'). rewrite IHa. eauto.
  - rewrite mk_diff_lang. simpl. by rewrite IHa, IHb.
Qed.

(** ** Probes

    A derivative depends on the character only through the ranges at the head
    of the expression, so finitely many characters represent all others. *)

Definition in_range (c : Z) (r : Z * Z) : bool := (r.1 <=? c) && (c <=? r.2).

(** The ranges the derivative of [r] tests. *)
Fixpoint heads (r : regex) : list (Z * Z) :=
  match r with
  | Void | Eps => []
  | Cls _ ranges => ranges
  | Seq r1 r2 => heads r1 ++ if nullable r1 then heads r2 else []
  | Alt r1 r2 | Diff r1 r2 => heads r1 ++ heads r2
  | Star r => heads r
  end.

Definition same_ranges (rs : list (Z * Z)) (c c' : Z) : Prop :=
  Forall (λ r, in_range c r = in_range c' r) rs.

Lemma same_in_ranges rs c c' : same_ranges rs c c' → in_ranges c rs = in_ranges c' rs.
Proof.
  unfold in_ranges. induction 1 as [|r rs Hr _ IH]; simpl; [done|].
  rewrite IH. f_equal. exact Hr.
Qed.

Lemma deriv_heads c c' r : same_ranges (heads r) c c' → deriv c r = deriv c' r.
Proof.
  unfold same_ranges.
  induction r as [| |n rs|a IHa b IHb|a IHa b IHb|a IHa|a IHa b IHb]; simpl;
    rewrite ?Forall_app; intros Hs; [done|done|..].
  - unfold in_class. by rewrite (same_in_ranges rs c c').
  - destruct Hs as [Ha Hb]. rewrite IHa by done.
    destruct (nullable a); [|done]. by rewrite IHb.
  - destruct Hs. by rewrite IHa, IHb.
  - by rewrite IHa.
  - destruct Hs. by rewrite IHa, IHb.
Qed.

(** The first character of each range, the first one after it, and 1. *)
Fixpoint probes (rs : list (Z * Z)) : list Z :=
  match rs with
  | [] => [1]
  | r :: rs' =>
    let add x xs := if existsb (Z.eqb x) xs then xs else x :: xs in
    add (r.1) (add (r.2 + 1) (probes rs'))
  end.

Lemma elem_of_add (x y : Z) xs :
  y ∈ (if existsb (Z.eqb x) xs then xs else x :: xs) ↔ y = x ∨ y ∈ xs.
Proof.
  destruct (existsb (Z.eqb x) xs) eqn:E; [|by rewrite elem_of_cons].
  apply existsb_exists in E as (z & Hz%list_elem_of_In & ->%Z.eqb_eq). naive_solver.
Qed.

Lemma elem_of_probes y rs :
  y ∈ probes rs ↔ y = 1 ∨ ∃ r, r ∈ rs ∧ (y = r.1 ∨ y = r.2 + 1).
Proof.
  induction rs as [|r rs IH]; cbn [probes].
  - rewrite list_elem_of_singleton. split; [by left|]. by intros [?|(r & ?%not_elem_of_nil & _)].
  - cbn zeta. rewrite !elem_of_add, IH. setoid_rewrite elem_of_cons. naive_solver.
Qed.

(** The greatest element of a list below a bound. *)
Lemma greatest_below (xs : list Z) (c : Z) :
  (∃ x, x ∈ xs ∧ x ≤ c) → ∃ m, m ∈ xs ∧ m ≤ c ∧ ∀ x, x ∈ xs → x ≤ c → x ≤ m.
Proof.
  induction xs as [|y xs IH]; [by intros (x & ?%not_elem_of_nil & _)|].
  setoid_rewrite elem_of_cons. intros (x & Hx & Hc).
  destruct (decide (Exists (λ x, x ≤ c) xs)) as [He|Hno].
  - apply Exists_exists, IH in He as (m & Hm & Hmc & Hmax).
    destruct (decide (y ≤ c ∧ m < y)) as [[? ?]|Hy].
    + exists y. split_and!; [by left|done|]. intros z [->|Hz] ?; [done|].
      specialize (Hmax z Hz). lia.
    + exists m. split_and!; [by right|done|]. intros z [->|Hz] ?; [lia|auto].
  - rewrite Exists_exists in Hno. destruct Hx as [->|Hx]; [|naive_solver].
    exists y. split_and!; [by left|done|]. intros z [->|Hz] ?; [done|]. naive_solver.
Qed.

Definition ranges_ok (rs : list (Z * Z)) : bool :=
  forallb (λ r, (1 <=? r.1) && (0 <=? r.2)) rs.

(** Every character but NUL behaves like one of the probes. *)
Lemma probes_complete rs c :
  ranges_ok rs = true → c ≠ 0 →
  ∃ p, p ∈ probes rs ∧ p ≠ 0 ∧ same_ranges rs c p.
Proof.
  unfold ranges_ok. rewrite forallb_forall. intros Hrs Hc.
  assert (∀ x, x ∈ probes rs → 1 ≤ x) as Hpos.
  { intros x [->|(r & Hr%list_elem_of_In%Hrs & Hx)]%elem_of_probes; [done|].
    clear Hrs. lia. }
  set (bound := if 0 <? c then c else Z.max c (foldr Z.max 1 (probes rs))).
  assert (∀ x, x ∈ probes rs → x ≤ foldr Z.max 1 (probes rs)) as Hmaxall.
  { clear. induction (probes rs) as [|y ys IH]; intros x; simpl;
      [by intros ?%not_elem_of_nil|]. rewrite elem_of_cons.
    intros [->|Hx%IH]; lia. }
  destruct (greatest_below (probes rs) bound) as (p & Hp & Hpb & Hmax).
  { exists 1. split; [apply elem_of_probes; by left|].
    specialize (Hmaxall 1 ltac:(apply elem_of_probes; by left)). clear -Hmaxall Hc.
    unfold bound. destruct (Z.ltb_spec 0 c); lia. }
  exists p. split_and!; [done|specialize (Hpos p Hp); clear -Hpos; lia|].
  apply Forall_forall. intros r Hr.
  pose proof (Hrs r (proj1 (list_elem_of_In _ _) Hr)) as Hok.
  assert (r.1 ∈ probes rs) as H1 by (apply elem_of_probes; eauto).
  assert (r.2 + 1 ∈ probes rs) as H2 by (apply elem_of_probes; eauto).
  pose proof (Hmax _ H1) as M1. pose proof (Hmax _ H2) as M2.
  pose proof (Hmaxall _ H2) as B2. specialize (Hpos p Hp). clear -Hok M1 M2 B2 Hpos Hpb Hc.
  unfold in_range, bound in *. destruct (Z.ltb_spec 0 c); lia.
Qed.

(** ** Notations for patterns *)

Fixpoint lit_of (w : list Z) : regex :=
  match w with
  | [] => Eps
  | [c] => Cls false [(c, c)]
  | c :: w' => Seq (Cls false [(c, c)]) (lit_of w')
  end.

Definition upper (c : Z) : Z :=
  if (c! "a" <=? c) && (c <=? c! "z") then c - 32 else c.

Fixpoint ilit_of (w : list Z) : regex :=
  match w with
  | [] => Eps
  | [c] => Cls false [(c, c); (upper c, upper c)]
  | c :: w' => Seq (Cls false [(c, c); (upper c, upper c)]) (ilit_of w')
  end.

(** A literal text, and one matched in any letter case. *)
Definition lit (s : string) : regex := lit_of (codes s).
Definition ilit (s : string) : regex := ilit_of (codes s).

(** [[...]] and [[^...]] for listed characters. *)
Definition one_of (s : string) : regex := Cls false ((λ c, (c, c)) <$> codes s).
Definition none_of (s : string) : regex := Cls true ((λ c, (c, c)) <$> codes s).

Definition opt (r : regex) : regex := Alt Eps r.
Definition plus (r : regex) : regex := Seq r (Star r).

(** A sequence and a choice of several patterns. *)
Definition seqs (rs : list regex) : regex := foldr mk_seq Eps rs.
Definition alts (rs : list regex) : regex := foldr mk_alt Void rs.

Lemma seqs_cons r rs w :
  lang (seqs (r :: rs)) w ↔ ∃ u v, w = u ++ v ∧ lang r u ∧ lang (seqs rs) v.
Proof. apply mk_seq_lang. Qed.

Lemma alts_cons r rs w : lang (alts (r :: rs)) w ↔ lang r w ∨ lang (alts rs) w.
Proof. apply mk_alt_lang. Qed.

Lemma lit_of_lang ws w : lang (lit_of ws) w ↔ w = ws.
Proof.
  assert (∀ c w, lang (Cls false [(c, c)]) w ↔ w = [c]) as Hc.
  { intros c v. simpl. unfold in_class, in_ranges. simpl. split.
    - intros (c' & -> & Heq). f_equal. lia.
    - intros ->. exists c. split; [done|]. lia. }
  revert w. induction ws as [|c ws IH]; intros w; [done|].
  destruct ws as [|c' ws]; [apply Hc|]. cbn [lit_of lang]. setoid_rewrite Hc.
  setoid_rewrite IH. split; [by intros (? & ? & -> & -> & ->)|].
  intros ->. by exists [c], (c' :: ws).
Qed.

Lemma lit_lang s w : lang (lit s) w ↔ w = codes s.
Proof. apply lit_of_lang. Qed.

(** Texts of lower-case letters are matched in any letter case. *)
Lemma ilit_of_lang ws w :
  Forall (λ c, c! "a" ≤ c ≤ c! "z") ws → lang (ilit_of ws) w → tolower <$> w = ws.
Proof.
  assert (∀ c v, c! "a" ≤ c ≤ c! "z" → lang (Cls false [(c, c); (upper c, upper c)]) v →
    tolower <$> v = [c]) as Hc.
  { intros c v Hl (c' & -> & Heq). simpl. f_equal. revert Heq.
    unfold in_class, in_ranges, upper, tolower. simpl.
    repeat case_match; lia. }
  intros Hws. revert w. induction Hws as [|c ws Hl Hws IH]; intros w; [by intros ->|].
  destruct ws as [|c' ws]; [by apply Hc|]. cbn [ilit_of lang].
  intros (u & v & -> & Hu & Hv). rewrite fmap_app, (Hc c u) by done.
  by rewrite IH.
Qed.

Lemma star_cls_lang neg rs w :
  lang (Star (Cls neg rs)) w ↔ Forall (λ c, in_class neg rs c = true) w.
Proof.
  split.
  - intros (ws & -> & Hws). induction Hws as [|u ws (c & -> & Hc) _ IH]; simpl; auto.
  - intros Hw. exists ((λ c, [c]) <$> w). split.
    + clear Hw. induction w as [|c w IH]; [done|]. simpl. f_equal. apply IH.
    + apply Forall_fmap. eapply Forall_impl; [done|]. intros c Hc. by exists c.
Qed.

(** ** Emptiness

    [regex_empty fuel r] explores the derivatives of [r] and checks that none
    accepts the empty word. *)

Fixpoint explore_regex (fuel : nat) (todo seen : list regex) : list regex :=
  match fuel, todo with
  | S f, r :: todo' =>
    if existsb (regex_eqb r) seen then explore_regex f todo' seen
    else
      explore_regex f (List.map (λ c, deriv c r) (probes (heads r)) ++ todo') (r :: seen)
  | _, _ => seen
  end.

Definition dead_end (seen : list regex) (r : regex) : bool :=
  negb (nullable r) && ranges_ok (heads r)
  && forallb (λ c, existsb (regex_eqb (deriv c r)) seen) (probes (heads r)).

Definition regex_empty (fuel : nat) (r : regex) : bool :=
  let seen := explore_regex fuel [r] [] in
  existsb (regex_eqb r) seen && forallb (dead_end seen) seen.

Lemma existsb_regex r rs : existsb (regex_eqb r) rs = true → r ∈ rs.
Proof.
  rewrite existsb_exists. intros (r' & Hr & ->%regex_eqb_sound). by apply list_elem_of_In.
Qed.

Lemma regex_empty_sound fuel r w :
  regex_empty fuel r = true → Forall (λ c, c ≠ 0) w → ¬ lang r w.
Proof.
  unfold regex_empty. set (seen := explore_regex _ _ _).
  clearbody seen. intros [Hr%existsb_regex Hall]%andb_true_iff Hw. revert r Hr.
  rewrite forallb_forall in Hall.
  induction Hw as [|c w Hc _ IH]; intros r Hr;
    specialize (Hall r (proj1 (list_elem_of_In _ _) Hr)) as Hok;
    unfold dead_end in Hok; rewrite !andb_true_iff in Hok;
    destruct Hok as [[Hn%negb_true_iff Hrs] Hd].
  - rewrite <- nullable_lang. congruence.
  - destruct (probes_complete _ _ Hrs Hc) as (p & Hp & _ & Hsame).
    rewrite <- deriv_lang, (deriv_heads c p) by done. apply IH, existsb_regex.
    rewrite forallb_forall in Hd. by apply Hd, list_elem_of_In.
Qed.

(** Inclusion of the words without NUL characters. *)
Definition regex_incl (fuel : nat) (r1 r2 : regex) : bool :=
  regex_empty fuel (mk_diff r1 r2).

Lemma lang_lem r w : lang r w ∨ ¬ lang r w.
Proof.
  revert r. induction w as [|c w IH]; intros r.
  - rewrite <- nullable_lang. destruct (nullable r); auto.
  - rewrite <- deriv_lang. apply IH.
Qed.

Lemma regex_incl_sound fuel r1 r2 w :
  regex_incl fuel r1 r2 = true → Forall (λ c, c ≠ 0) w → lang r1 w → lang r2 w.
Proof.
  intros Hi Hw H1. destruct (lang_lem r2 w) as [|Hn]; [done|].
  destruct (regex_empty_sound _ _ _ Hi Hw). by apply mk_diff_lang.
Qed.
