(* ===== verification/LexCheck.v ===== *)
(** * Deciding that an automaton recognises given patterns

    [agree cases s ts] explores the pairs of an automaton state and a set of
    derivatives reachable from [(s, ts)] and checks that they accept the same
    symbols.  [agree_sound] is its correctness: if the check succeeds, the
    automaton accepts a word as [t] exactly when the pattern of [t] in [ts]
    matches it, for every word without NUL characters. *)

From S2P Require Import Prelude.
From S2P Require Import Lexer.
From S2P Require Import Symbols.
From S2P Require Import LexTable.
From S2P Require Import LexDfa.
From S2P Require Import Regex.

(** Patterns, each with its symbol. *)
Definition tokset := list (ts_symbol * regex).

(** The symbols whose pattern matches [w]. *)
Definition matches (ts : tokset) (t : ts_symbol) (w : list Z) : Prop :=
  ∃ r, (t, r) ∈ ts ∧ lang r w.

Definition is_void (r : regex) : bool := match r with Void => true | _ => false end.

Definition deriv_set (c : Z) (ts : tokset) : tokset :=
  List.filter (λ x, negb (is_void x.2)) (List.map (λ x, (x.1, deriv c x.2)) ts).

Definition nullable_tokens (ts : tokset) : list ts_symbol :=
  List.map fst (List.filter (λ x, nullable x.2) ts).

Lemma deriv_set_matches c ts t w :
  matches (deriv_set c ts) t w ↔ matches ts t (c :: w).
Proof.
  unfold matches, deriv_set. split.
  - intros (r & Hr & Hw). apply list_elem_of_In, filter_In in Hr as [Hr _].
    apply in_map_iff in Hr as ([t' r'] & [= <- <-] & Hr).
    exists r'. rewrite list_elem_of_In. split; [done|]. by apply deriv_lang.
  - intros (r & Hr & Hw). exists (deriv c r). rewrite <- deriv_lang in Hw.
    split; [|done]. apply list_elem_of_In, filter_In. split.
    + apply in_map_iff. exists (t, r). split; [done|]. by apply list_elem_of_In.
    + simpl. by destruct (deriv c r).
Qed.

Lemma nullable_tokens_matches ts t : t ∈ nullable_tokens ts ↔ matches ts t [].
Proof.
  unfold matches, nullable_tokens. rewrite list_elem_of_In, in_map_iff. split.
  - intros ([t' r] & <- & [Hr Hn]%filter_In). exists r.
    rewrite list_elem_of_In. split; [done|]. by apply nullable_lang.
  - intros (r & Hr%list_elem_of_In & Hn%nullable_lang). exists (t, r).
    split; [done|]. by apply filter_In.
Qed.

Lemma deriv_set_same c c' ts :
  same_ranges (List.flat_map (λ x, heads x.2) ts) c c' → deriv_set c ts = deriv_set c' ts.
Proof.
  intros Ha. unfold deriv_set. f_equal. apply map_ext_in. intros [t r] Hin.
  simpl. f_equal. apply deriv_heads. eapply Forall_forall. intros x Hx.
  unfold same_ranges in Ha. rewrite Forall_forall in Ha. apply Ha, list_elem_of_In, in_flat_map.
  exists (t, r). split; [done|]. by apply list_elem_of_In.
Qed.

(** ** The tests of the automaton *)

(** The ranges a statement tests; NUL never gets this far. *)
Definition stmt_ranges (s : stmt) : list (Z * Z) :=
  match s with
  | ACCEPT_TOKEN _ | IF_EOF _ => []
  | ADVANCE_MAP map => List.map (λ e, (e.1, e.1)) map
  | IF_ANY tests _ =>
    List.map (λ t, match t with Eq c => (c, c) | Range lo hi => (lo, hi) end) tests
  | IF_NONE chars _ =>
    List.map (λ c, (c, c)) (List.filter (λ c, negb (c =? 0)) chars)
  end.

Lemma in_range_single c k : in_range c (k, k) = (c =? k).
Proof. unfold in_range. simpl. lia. Qed.

Lemma stmt_target_same c c' s :
  c ≠ 0 → c' ≠ 0 → same_ranges (stmt_ranges s) c c' →
  stmt_target c false s = stmt_target c' false s.
Proof.
  unfold same_ranges. intros Hc Hc'.
  destruct s as [sym|n|map|ts n|cs n]; simpl; [done|done|..].
  - unfold advance_map. intros Hs. f_equal.
    induction map as [|[k n] map IH]; simpl in *; [done|].
    apply Forall_cons in Hs as [Hk Hs]. rewrite !in_range_single in Hk. simpl in Hk.
    rewrite (Z.eqb_sym k c), (Z.eqb_sym k c'), Hk. destruct (c' =? k); auto.
  - intros Hs. replace (existsb (test_holds c') ts) with (existsb (test_holds c) ts);
      [done|].
    induction ts as [|t ts IH]; simpl in *; [done|].
    apply Forall_cons in Hs as [Ht Hs]. rewrite IH by done. f_equal.
    destruct t; simpl; [by rewrite !in_range_single in Ht|done].
  - intros Hs. replace (forallb (λ k, negb (c' =? k)) cs)
      with (forallb (λ k, negb (c =? k)) cs); [done|].
    induction cs as [|k cs IH]; simpl in *; [done|].
    destruct (Z.eqb_spec k 0) as [->|Hk]; simpl in *.
    + rewrite IH by done. f_equal. lia.
    + apply Forall_cons in Hs as [Hr Hs]. rewrite !in_range_single in Hr.
      by rewrite IH, Hr.
Qed.

Lemma case_target_same c c' body :
  c ≠ 0 → c' ≠ 0 → same_ranges (List.flat_map stmt_ranges body) c c' →
  case_target body c false = case_target body c' false.
Proof.
  unfold same_ranges. intros Hc Hc'. induction body as [|s body IH]; simpl; [done|].
  rewrite Forall_app. intros [Hs Hb]. by rewrite (stmt_target_same c c' s), IH.
Qed.

(** ** The exploration *)

Definition tokset_eqb : tokset → tokset → bool :=
  list_eqb (λ x y, symbol_eqb x.1 y.1 && regex_eqb x.2 y.2).

Lemma tokset_eqb_sound x y : tokset_eqb x y = true → x = y.
Proof.
  apply list_eqb_sound. intros [t r] [t' r']. simpl.
  intros [->%symbol_eqb_spec ->%regex_eqb_sound]%andb_true_iff. done.
Qed.

(** The pattern sets paired with each state. *)
Definition nodes := list (list tokset).

Definition mem_node (s : nat) (ts : tokset) (seen : nodes) : bool :=
  match seen !! s with
  | Some b => existsb (tokset_eqb ts) b
  | None => false
  end.

Section check.
Context (cases : list (list stmt)).

(** The characters to try at a node. *)
Definition node_ranges (body : list stmt) (ts : tokset) : list (Z * Z) :=
  List.flat_map stmt_ranges body ++ List.flat_map (λ x, heads x.2) ts.

Definition succs (body : list stmt) (ts : tokset) : list (nat * tokset) :=
  List.flat_map
    (λ c, match case_target body c false with
          | Some s => [(s, deriv_set c ts)]
          | None => []
          end) (probes (node_ranges body ts)).

Fixpoint explore (fuel : nat) (todo : list (nat * tokset)) (seen : nodes) : nodes :=
  match fuel, todo with
  | S f, x :: todo' =>
    if mem_node x.1 x.2 seen then explore f todo' seen
    else
      match cases !! x.1 with
      | Some body => explore f (succs body x.2 ++ todo') (alter (cons x.2) x.1 seen)
      | None => seen
      end
  | _, _ => seen
  end.

(** A node whose two sides accept the same symbols and whose successors
    are in [seen]. *)
Definition node_ok (seen : nodes) (s : nat) (ts : tokset) : bool :=
  match cases !! s with
  | None => false
  | Some body =>
    let rs := node_ranges body ts in
    ranges_ok rs
    && list_eqb symbol_eqb (nullable_tokens ts) (option_list (case_accept body))
    && forallb (λ c, match case_target body c false with
                     | Some s' => mem_node s' (deriv_set c ts) seen
                     | None => match deriv_set c ts with [] => true | _ => false end
                     end) (probes rs)
  end.

(** All nodes of the buckets from [s] on. *)
Fixpoint nodes_ok (seen : nodes) (s : nat) (bs : nodes) : bool :=
  match bs with
  | [] => true
  | b :: bs' => forallb (node_ok seen s) b && nodes_ok seen (S s) bs'
  end.

Definition agree (fuel : nat) (starts : list (nat * tokset)) : bool :=
  let seen := explore fuel starts (replicate (length cases) []) in
  forallb (λ x, mem_node x.1 x.2 seen) starts && nodes_ok seen 0 seen.

Lemma nodes_ok_mem seen n bs s ts :
  nodes_ok seen n bs = true → mem_node s ts bs = true →
  node_ok seen (n + s) ts = true.
Proof.
  unfold mem_node. revert n s. induction bs as [|b bs IH]; intros n s; simpl; [done|].
  intros [Hb Hbs]%andb_true_iff. destruct s as [|s]; simpl.
  - rewrite existsb_exists. intros (ts' & Hin & ->%tokset_eqb_sound).
    rewrite forallb_forall in Hb. rewrite Nat.add_0_r. auto.
  - intros Hm. replace (n + S s)%nat with (S n + s)%nat by lia. auto.
Qed.

Lemma node_ok_sound seen s ts w t :
  (∀ s ts, mem_node s ts seen = true → node_ok seen s ts = true) →
  mem_node s ts seen = true → Forall (λ c, c ≠ 0) w →
  matches ts t w ↔ run cases s w ≫= accept cases = Some t.
Proof.
  intros Hall Hin Hw. revert s ts Hin.
  induction Hw as [|c w Hc Hw IH]; intros s ts Hin; apply Hall in Hin as Hok;
    unfold node_ok in Hok;
    (destruct (cases !! s) as [body|] eqn:Hs; [|done]); cbn zeta in Hok;
    rewrite !andb_true_iff in Hok; destruct Hok as [[Hr Hn] Hsucc].
  - cbn [run mbind option_bind]. unfold accept. rewrite Hs. cbn [mbind option_bind].
    rewrite <- nullable_tokens_matches.
    apply list_eqb_sound in Hn as ->; [|by intros ??; apply symbol_eqb_spec].
    destruct (case_accept body); simpl.
    + rewrite list_elem_of_singleton. split; congruence.
    + rewrite elem_of_nil. done.
  - destruct (probes_complete _ _ Hr Hc) as (p & Hp & Hp0 & Hsame).
    unfold node_ranges, same_ranges in Hsame.
    rewrite Forall_app in Hsame. destruct Hsame as [Hs1 Hs2].
    rewrite <- deriv_set_matches, (deriv_set_same c p ts) by done.
    cbn [run]. unfold step. rewrite Hs. cbn [mbind option_bind].
    rewrite (case_target_same c p body) by done.
    rewrite forallb_forall in Hsucc.
    specialize (Hsucc p (proj1 (list_elem_of_In _ _) Hp)).
    destruct (case_target body p false) as [s'|]; cbn [mbind option_bind].
    + by apply IH.
    + destruct (deriv_set p ts); [|done]. split; [|done].
      by intros (r & ?%not_elem_of_nil & _).
Qed.

Lemma agree_sound fuel starts s ts w t :
  agree fuel starts = true → (s, ts) ∈ starts → Forall (λ c, c ≠ 0) w →
  matches ts t w ↔ run cases s w ≫= accept cases = Some t.
Proof.
  unfold agree. set (seen := explore _ _ _).
  intros [Hin Hall]%andb_true_iff Hs Hw. apply (node_ok_sound seen); [|..|done].
  - intros s' ts'. by apply (nodes_ok_mem seen 0 seen).
  - rewrite forallb_forall in Hin. by apply (Hin (s, ts)), list_elem_of_In.
Qed.
End check.
