(* ===== verification/LexTokens.v ===== *)
(** * The token patterns of the grammar

    The patterns of [grammar.js] as regular expressions, the rules that pick
    one token when several patterns match the same text, and the check that
    the automaton of [ts_lex] recognises, from every lex state the parser
    uses, exactly the tokens of that state. *)

From S2P Require Import Prelude.
From S2P Require Import Lexer.
From S2P Require Import Symbols.
From S2P Require Import LexTable.
From S2P Require Import LexDfa.
From S2P Require Import Regex.
From S2P Require Import LexCheck.

(** ** Patterns *)

Abbreviation digits_range := (c! "0", c! "9").
Abbreviation lower_range := (c! "a", c! "z").
Abbreviation upper_range := (c! "A", c! "Z").
Abbreviation underscore := (c! "_", c! "_").

Definition digit : regex := Cls false [digits_range].
Definition digit_ : regex := Cls false [digits_range; underscore].
Definition hex : regex :=
  Cls false [(c! "a", c! "f"); (c! "A", c! "F"); digits_range].
Definition hex_ : regex :=
  Cls false [(c! "a", c! "f"); (c! "A", c! "F"); digits_range; underscore].

(** [[0-9][0-9_]*] *)
Definition number : regex := Seq digit (Star digit_).

(** The rest of a text that ends at the first star and closing parenthesis. *)
Definition star_tail : regex :=
  seqs [Star (none_of "*");
        Star (seqs [plus (lit "*"); none_of "*)"; Star (none_of "*")]);
        plus (lit "*"); lit ")"].

(** [ppKeyword(names)]: a directive with one of the names, in either
    spelling, whose name is not continued. *)
Definition ppKeyword (names : list string) : regex :=
  let name := alts (ilit <$> names) in
  Alt
    (seqs [lit "{$"; name;
           opt (Seq (Cls true [lower_range; upper_range; underscore; (c! "}", c! "}")])
                    (Star (none_of "}")));
           lit "}"])
    (seqs [lit "(*$"; name;
           opt (seqs [Cls true [lower_range; upper_range; underscore; (c! "*", c! "*")];
                      Star (none_of "*");
                      Star (seqs [plus (lit "*"); none_of "*)"; Star (none_of "*")])]);
           plus (lit "*"); lit ")"]).

Definition ppDirective : regex :=
  Alt (seqs [lit "{$"; Star (none_of "}"); lit "}"]) (Seq (lit "(*$") star_tail).

Definition comment : regex :=
  alts [Seq (lit "//") (Star (Cls true [(CR, CR); (LF, LF)]));
        seqs [lit "{"; opt (Seq (none_of "$}") (Star (none_of "}"))); lit "}"];
        seqs [lit "(*"; opt (Seq (none_of "$*") (Star (none_of "*"))); plus (lit "*");
              Star (seqs [none_of ")*"; Star (none_of "*"); plus (lit "*")]); lit ")"]].

(** The class [\s] of the grammar generator is the blank and the ASCII controls
    from tab to carriage return. *)
Definition space : regex := plus (Cls false [(TAB, CR); (c! " ", c! " ")]).

Definition literalInt : regex := Seq (opt (one_of "-+")) number.
Definition literalHex : regex := seqs [lit "$"; hex; Star hex_].
Definition literalBin : regex := seqs [lit "%"; one_of "01"; Star (one_of "01_")].
Definition literalFloat : regex :=
  seqs [opt (one_of "-+"); opt number; opt (lit "."); number;
        opt (seqs [one_of "eE"; opt (one_of "+-"); number])].
Definition literalString : regex := seqs [lit "'"; Star (none_of "'"); lit "'"].

(** Tokens that are fixed texts. *)
Definition fixed_tokens : list (ts_symbol * string) :=
  [(anon_sym_SEMI, ";"); (anon_sym_COLON, ":"); (anon_sym_COMMA, ",");
   (anon_sym_DOT, "."); (anon_sym_DOT_DOT, ".."); (anon_sym_LBRACK, "[");
   (anon_sym_RBRACK, "]"); (anon_sym_LPAREN, "("); (anon_sym_RPAREN, ")");
   (anon_sym_POUND, "#"); (sym_kAdd, "+"); (sym_kSub, "-"); (sym_kMul, "*");
   (sym_kFdiv, "/"); (sym_kEq, "="); (sym_kNeq, "<>"); (sym_kLt, "<");
   (sym_kLte, "<="); (sym_kGt, ">"); (sym_kGte, ">="); (sym_kAt, "@");
   (sym_kHat, "^"); (sym_kAssign, ":="); (sym_kAssignAdd, "+=");
   (sym_kAssignSub, "-="); (sym_kAssignMul, "*="); (sym_kAssignDiv, "/=")].

(** The pattern of a token of the internal lexer. *)
Definition pattern (t : ts_symbol) : regex :=
  match t with
  | aux_sym_ppUsesBlock_token1 => ppKeyword ["ifdef"; "ifndef"; "if"]
  | aux_sym_ppUsesBlock_token2 => ppKeyword ["elseif"; "else"]
  | aux_sym_ppUsesBlock_token3 => ppKeyword ["endif"; "ifend"]
  | sym_ppDirective => ppDirective
  | sym_comment => comment
  | sym__space => space
  | sym_labelNumber => plus digit
  | sym_kTrue => ilit "true"
  | sym_kFalse => ilit "false"
  | aux_sym__literalInt_token1 => literalInt
  | aux_sym__literalInt_token2 => literalHex
  | aux_sym__literalInt_token3 => literalBin
  | aux_sym__literalFloat_token1 => literalFloat
  | aux_sym__literalString_token1 => literalString
  | aux_sym_asmBody_token1 => hex
  | aux_sym_asmBody_token2 => one_of ".,:;+-*[]<>&%$@"
  | aux_sym_asmBody_token3 => Alt (Seq (lit "(") (none_of "*")) (lit ")")
  | _ => default Void (lit <$> entry fixed_tokens t)
  end.

(** ** Which token wins *)

(** The tokens preferred to [t] on a text that both match: a conditional
    directive is not a plain directive, an integer is not a float, and a
    punctuation token is not assembler text. *)
Definition preferred (t : ts_symbol) : list ts_symbol :=
  match t with
  | sym_ppDirective =>
    [aux_sym_ppUsesBlock_token1; aux_sym_ppUsesBlock_token2; aux_sym_ppUsesBlock_token3]
  | aux_sym__literalFloat_token1 => [aux_sym__literalInt_token1]
  | aux_sym_asmBody_token2 => fixed_tokens.*1
  | _ => []
  end.

(** Marks the states reachable from the states [todo]. *)
Fixpoint reachable (cases : list (list stmt)) (fuel : nat) (todo : list nat)
    (seen : list bool) : list bool :=
  match fuel, todo with
  | S f, s :: todo' =>
    match seen !! s with
    | Some false =>
      let next := List.flat_map stmt_targets (default [] (cases !! s)) in
      reachable cases f (next ++ todo') (<[s := true]> seen)
    | _ => reachable cases f todo' seen
    end
  | _, _ => seen
  end.

Definition symbol_mem (t : ts_symbol) (ts : list ts_symbol) : bool :=
  existsb (symbol_eqb t) ts.

Fixpoint symbol_nodup (ts : list ts_symbol) : list ts_symbol :=
  match ts with
  | [] => []
  | t :: ts' => if symbol_mem t ts' then symbol_nodup ts' else t :: symbol_nodup ts'
  end.

(** The tokens that can be recognised from the state [s]. *)
Definition state_tokens (s : nat) : list ts_symbol :=
  let marks := reachable ts_lex_cases 2000 [s] (replicate (length ts_lex_cases) false) in
  symbol_nodup
    (List.flat_map (λ x, if x.1 : bool then option_list (case_accept x.2) else [])
       (zip marks ts_lex_cases)).

(** [w] is a token [t] in the state [s].  Where label numbers, which have
    lexical precedence, are acceptable, no other token starts with a digit. *)
Definition token_text (s : nat) (t : ts_symbol) (w : list Z) : Prop :=
  t ∈ state_tokens s
  ∧ lang (pattern t) w
  ∧ (∀ h, h ∈ preferred t → h ∈ state_tokens s → ¬ lang (pattern h) w)
  ∧ (sym_labelNumber ∈ state_tokens s → t ≠ sym_labelNumber →
     ¬ lang (Seq digit any_text) w).

(** The same as one expression. *)
Definition state_pattern (toks : list ts_symbol) (t : ts_symbol) : regex :=
  let r := foldr (λ h r, if symbol_mem h toks then mk_diff r (pattern h) else r)
             (pattern t) (preferred t) in
  if symbol_mem sym_labelNumber toks && negb (symbol_eqb t sym_labelNumber)
  then mk_diff r (Seq digit any_text) else r.

Definition state_patterns (s : nat) : tokset :=
  let toks := state_tokens s in
  (λ t, (t, state_pattern toks t)) <$> toks.

(** The lex states of the parser: the values of [lex_state] in
    [ts_lex_modes]. *)
Definition lex_states : list nat :=
  seq 0 19 ++ [21%nat] ++ seq 31 16 ++ [144; 145]%nat.

(** ** The check *)

Lemma ts_lex_well_formed : well_formed ts_lex_cases = true.
Proof. by vm_compute. Qed.

Definition lex_starts : list (nat * tokset) :=
  (λ s, (s, state_patterns s)) <$> lex_states.

Lemma lex_states_agree : agree ts_lex_cases (Z.to_nat 20000) lex_starts = true.
Proof. by vm_compute. Qed.
