(* ===== verification/LexTheorems.v ===== *)
(** * Correctness of the generated lexer

    [ts_lex], started in any lex state of the parser, performs the longest
    match of the token patterns of the grammar that are acceptable in that
    state.  The proof combines the refinement of the C loop to the automaton
    ([LexDfa.v]) with the language check of the automaton ([LexTokens.v]). *)

From S2P Require Import Prelude.
From S2P Require Import Lexer.
From S2P Require Import Chars.
From S2P Require Import Symbols.
From S2P Require Import LexTable.
From S2P Require Import LexDfa.
From S2P Require Import Regex.
From S2P Require Import LexCheck.
From S2P Require Import LexTokens.

(** ** The patterns of a state *)

Lemma symbol_mem_spec t ts : symbol_mem t ts = true ↔ t ∈ ts.
Proof.
  unfold symbol_mem. rewrite existsb_exists. setoid_rewrite symbol_eqb_spec.
  rewrite list_elem_of_In. naive_solver.
Qed.

Lemma foldr_diff_lang toks hs r w :
  lang (foldr (λ h r, if symbol_mem h toks then mk_diff r (pattern h) else r) r hs) w
  ↔ lang r w ∧ ∀ h, h ∈ hs → h ∈ toks → ¬ lang (pattern h) w.
Proof.
  induction hs as [|h hs IH]; cbn [foldr].
  { split; [|by intros []]. intros. split; [done|]. by intros ? ?%not_elem_of_nil. }
  setoid_rewrite elem_of_cons. destruct (symbol_mem h toks) eqn:E.
  - apply symbol_mem_spec in E. rewrite mk_diff_lang, IH. naive_solver.
  - assert (h ∉ toks) by (rewrite <- symbol_mem_spec; congruence).
    rewrite IH. naive_solver.
Qed.

Lemma state_pattern_lang toks t w :
  lang (state_pattern toks t) w
  ↔ lang (pattern t) w
    ∧ (∀ h, h ∈ preferred t → h ∈ toks → ¬ lang (pattern h) w)
    ∧ (sym_labelNumber ∈ toks → t ≠ sym_labelNumber → ¬ lang (Seq digit any_text) w).
Proof.
  unfold state_pattern. rewrite <- symbol_mem_spec, <- (symbol_eqb_spec t).
  destruct (symbol_mem sym_labelNumber toks && negb (symbol_eqb t sym_labelNumber)) eqn:E.
  - rewrite mk_diff_lang, foldr_diff_lang.
    apply andb_true_iff in E as [-> ->%negb_true_iff].
    split; [by intros [[? ?] ?]|]. intros (? & ? & Hd). split; [done|by apply Hd].
  - rewrite foldr_diff_lang. split.
    + intros [? ?]. split_and!; [done..|]. intros H1 H2.
      apply andb_false_iff in E as [E|E%negb_false_iff]; congruence.
    + by intros (? & ? & _).
Qed.

Lemma state_patterns_text s t w :
  matches (state_patterns s) t w ↔ token_text s t w.
Proof.
  unfold matches, state_patterns, token_text. rewrite <- state_pattern_lang. split.
  - intros (r & (t' & [= -> ->] & Ht)%list_elem_of_fmap & Hr). done.
  - intros [Ht Hr]. eexists. split; [|done]. by apply list_elem_of_fmap; eauto.
Qed.

(** The automaton recognises the tokens of a lex state. *)
Lemma lex_state_language s t w :
  s ∈ lex_states → Forall (λ c, c ≠ 0) w →
  token_text s t w ↔ run ts_lex_cases s w ≫= accept ts_lex_cases = Some t.
Proof.
  intros Hs Hw. rewrite <- state_patterns_text.
  eapply agree_sound; [apply lex_states_agree| |done].
  by apply (list_elem_of_fmap_2 (λ s, (s, state_patterns s))).
Qed.

(** ** Where the end of the input is accepted *)

Definition no_step_eof (n : nat) : bool :=
  match step_eof ts_lex_cases n with None => true | Some _ => false end.

Lemma moves_leave_eof :
  forallb (λ body, forallb (λ st,
    match st with IF_EOF _ => true | _ => forallb no_step_eof (stmt_targets st) end) body)
    ts_lex_cases = true.
Proof. by vm_compute. Qed.

Lemma step_no_eof s c n : step ts_lex_cases s c = Some n → step_eof ts_lex_cases n = None.
Proof.
  unfold step. destruct (ts_lex_cases !! s) as [body|] eqn:Hs; [|done].
  cbn [mbind option_bind]. intros (st & Hst & Ht)%case_target_stmt.
  pose proof moves_leave_eof as Hall. rewrite forallb_forall in Hall.
  specialize (Hall body (proj1 (list_elem_of_In _ _) (list_elem_of_lookup_2 _ _ _ Hs))).
  rewrite forallb_forall in Hall. specialize (Hall st (proj1 (list_elem_of_In _ _) Hst)).
  assert (forallb no_step_eof (stmt_targets st) = true) as Hn by (by destruct st).
  rewrite forallb_forall in Hn.
  specialize (Hn n (proj1 (list_elem_of_In _ _) (stmt_target_targets _ _ _ _ Ht))).
  unfold no_step_eof in Hn. by case_match.
Qed.

Lemma run_last s w n : run ts_lex_cases s w = Some n → w ≠ [] → ∃ s' c, step ts_lex_cases s' c = Some n.
Proof.
  revert s. induction w as [|c w IH]; intros s; [done|]. cbn [run]. intros Hr _.
  apply bind_Some in Hr as (s' & Hs & Hr). destruct w as [|c' w]; [|by eapply IH].
  simpl in Hr. simplify_eq. eauto.
Qed.

Lemma run_no_nul s w n : run ts_lex_cases s w = Some n → Forall (λ c, c ≠ 0) w.
Proof.
  revert s. induction w as [|c w IH]; intros s; [done|]. cbn [run].
  intros (s' & Hs & Hr)%bind_Some. constructor; [|by eapply IH].
  intros ->. by rewrite (step_nul _ ts_lex_well_formed) in Hs.
Qed.

(** The prefixes the automaton accepts are the token texts. *)
Lemma matched_text s w tl t :
  s ∈ lex_states → w ++ tl ≠ [] →
  matched ts_lex_cases s w tl = Some t
  ↔ Forall (λ c, c ≠ 0) w ∧ token_text s t w.
Proof.
  intros Hs Hne.
  assert (matched ts_lex_cases s w tl = run ts_lex_cases s w ≫= accept ts_lex_cases) as ->.
  { unfold matched. destruct (run ts_lex_cases s w) as [n|] eqn:Hr; [|done].
    cbn [mbind option_bind]. unfold accept_at. destruct tl; [|done].
    destruct (run_last _ _ _ Hr) as (s' & c & Hstep).
    { intros ->. by apply Hne. }
    by rewrite (step_no_eof _ _ _ Hstep). }
  split.
  - intros Hr. assert (Forall (λ c, c ≠ 0) w).
    { apply bind_Some in Hr as (n & Hr & _). by eapply run_no_nul. }
    split; [done|]. by apply lex_state_language.
  - intros [Hw Ht]. by apply lex_state_language.
Qed.

Lemma lex_states_lt s : s ∈ lex_states → (s < length ts_lex_cases)%nat.
Proof.
  assert (Forall (λ s, s < length ts_lex_cases)%nat lex_states) as Hall
    by (apply (bool_decide_unpack _); by vm_compute).
  rewrite Forall_forall in Hall. apply Hall.
Qed.

(** ** The longest token *)

(** [lexes s cs t tl]: the longest token text of the state [s] that is a
    prefix of [cs] is a [t], and [tl] is what follows it. *)
Definition lexes (s : nat) (cs : list Z) (t : ts_symbol) (tl : list Z) : Prop :=
  ∃ w, cs = w ++ tl ∧ Forall (λ c, c ≠ 0) w ∧ token_text s t w
    ∧ ∀ w' tl' t', cs = w' ++ tl' → Forall (λ c, c ≠ 0) w' →
        (length w < length w')%nat → ¬ token_text s t' w'.

Lemma lexes_longest s cs t tl :
  s ∈ lex_states → cs ≠ [] → lexes s cs t tl ↔ longest ts_lex_cases s cs t tl.
Proof.
  intros Hs Hne. unfold lexes, longest. split.
  - intros (w & Hcs & Hw & Ht & Hmax). exists w. split_and!; [done|..].
    + apply matched_text; [done|congruence|done].
    + intros w' tl' Hcs' Hl. destruct (matched _ _ _ _) as [t'|] eqn:Hm; [|done].
      apply matched_text in Hm as [Hw' Ht']; [|done|congruence]. by destruct (Hmax w' tl' t').
  - intros (w & Hcs & Hm & Hmax). exists w.
    apply matched_text in Hm as [Hw Ht]; [|done|congruence]. split_and!; [done..|].
    intros w' tl' t' Hcs' Hw' Hl Ht'. specialize (Hmax _ _ Hcs' Hl).
    assert (matched ts_lex_cases s w' tl' = Some t') by (apply matched_text; [done|congruence|done]).
    congruence.
Qed.

(** ** Shapes of the patterns *)

Lemma patterns_not_nullable t : nullable (pattern t) = false.
Proof.
  apply negb_true_iff.
  apply (symbol_forall (λ t, negb (nullable (pattern t)))). by vm_compute.
Qed.

Lemma token_text_nonempty s t w : token_text s t w → w ≠ [].
Proof.
  intros (_ & Ht & _) ->. apply nullable_lang in Ht.
  by rewrite patterns_not_nullable in Ht.
Qed.

(** A token that starts with a brace ends at the first closing brace. *)
Definition brace_shape : regex :=
  Alt (seqs [lit "{"; Star (none_of "}"); lit "}"])
      (Alt Eps (Seq (none_of "{") any_text)).

Lemma patterns_brace_shape t : regex_incl 500 (pattern t) brace_shape = true.
Proof.
  apply (symbol_forall (λ t, regex_incl 500 (pattern t) brace_shape)). by vm_compute.
Qed.

(** No token starts with a letter but the two literals and assembler text. *)
Definition no_letter_shape : regex :=
  Alt Eps (Seq (Cls true [lower_range; upper_range; underscore]) any_text).

Definition letter_tokens : list ts_symbol := [sym_kTrue; sym_kFalse; aux_sym_asmBody_token1].

Lemma patterns_no_letter t :
  t ∉ letter_tokens → regex_incl 500 (pattern t) no_letter_shape = true.
Proof.
  rewrite <- symbol_mem_spec. intros Ht.
  pose proof (symbol_forall
    (λ t, symbol_mem t letter_tokens || regex_incl 500 (pattern t) no_letter_shape)
    ltac:(by vm_compute) t) as Hall.
  apply orb_true_iff in Hall as [?|?]; done.
Qed.

Lemma no_brace_class c : in_class true [(c! "}", c! "}")] c = true ↔ c ≠ c! "}".
Proof. unfold in_class, in_ranges. simpl. case_match; lia. Qed.

Lemma star_no_brace w : lang (Star (none_of "}")) w ↔ Forall (λ c, c ≠ c! "}") w.
Proof.
  change (none_of "}") with (Cls true [(c! "}", c! "}")]).
  rewrite star_cls_lang. split; intros Hw; (eapply Forall_impl; [done|]);
    intros c; apply no_brace_class.
Qed.

Lemma brace_split t w :
  Forall (λ c, c ≠ 0) w → lang (pattern t) w → peek w = c! "{" →
  ∃ u, w = codes "{" ++ u ++ codes "}" ∧ Forall (λ c, c ≠ c! "}") u.
Proof.
  intros Hw Ht Hp.
  apply (regex_incl_sound _ _ _ _ (patterns_brace_shape t) Hw) in Ht as [Ht|[Ht|Ht]].
  - apply seqs_cons in Ht as (a & v & -> & ->%lit_lang & Ht).
    apply seqs_cons in Ht as (u & v' & -> & Hu%star_no_brace & Ht).
    apply seqs_cons in Ht as (b & e & -> & ->%lit_lang & He). simpl in He. subst e.
    exists u. by rewrite app_nil_r.
  - simpl in Ht. by subst w.
  - destruct Ht as (u & v & -> & (c & -> & Hc) & _). simpl in Hp. subst c. by compute in Hc.
Qed.

(** The text before the first closing brace is unique. *)
Lemma first_brace u v x y :
  Forall (λ c, c ≠ c! "}") u → Forall (λ c, c ≠ c! "}") v →
  u ++ c! "}" :: x = v ++ c! "}" :: y → u = v.
Proof.
  intros Hu. revert v. induction Hu as [|c u Hc _ IH]; intros v Hv Heq.
  - destruct Hv as [|c' v Hc' _]; simpl in *; [done|]. by simplify_eq.
  - destruct Hv as [|c' v Hc' Hv]; simpl in *; simplify_eq.
    f_equal. by eapply IH.
Qed.

(** No token of the state starts with a brace and goes past the closing one. *)
Lemma brace_maximal s body tl w' tl' t' :
  Forall (λ c, c ≠ c! "}") body → Forall (λ c, c ≠ 0) w' →
  codes "{" ++ body ++ codes "}" ++ tl = w' ++ tl' → token_text s t' w' →
  w' = codes "{" ++ body ++ codes "}".
Proof.
  intros Hb Hw' Heq Ht. pose proof (token_text_nonempty _ _ _ Ht) as Hne.
  destruct Ht as (_ & Ht & _).
  destruct (brace_split t' w' Hw' Ht) as (u & -> & Hu).
  { destruct w'; [done|]. simpl in *. by simplify_eq. }
  assert (body ++ c! "}" :: tl = u ++ c! "}" :: tl') as Heq'.
  { rewrite <- !(assoc_L (++)) in Heq. by injection Heq. }
  by rewrite (first_brace _ _ _ _ Hb Hu Heq').
Qed.

Lemma no_digit_first s t w c :
  peek w = c → w ≠ [] → (c <? c! "0") || (c! "9" <? c) = true →
  sym_labelNumber ∈ state_tokens s → t ≠ sym_labelNumber → ¬ lang (Seq digit any_text) w.
Proof.
  intros Hp Hne Hc _ _ (u & v & -> & (c' & -> & Hd) & _). simpl in Hp. subst c'.
  revert Hd. unfold in_class, in_ranges. simpl. lia.
Qed.

Definition directive_tokens : list ts_symbol := sym_ppDirective :: preferred sym_ppDirective.

Lemma lex_states_braces s :
  s ∈ lex_states → sym_comment ∈ state_tokens s ∧ sym_ppDirective ∈ state_tokens s.
Proof.
  assert (Forall (λ s, symbol_mem sym_comment (state_tokens s) = true
    ∧ symbol_mem sym_ppDirective (state_tokens s) = true) lex_states) as Hall
    by (apply (bool_decide_unpack _); by vm_compute).
  rewrite Forall_forall in Hall. rewrite <- !symbol_mem_spec. apply Hall.
Qed.

(** ** Braces *)

Lemma comment_text s body :
  s ∈ lex_states → Forall (λ c, c ≠ c! "}") body → peek body ≠ c! "$" →
  token_text s sym_comment (codes "{" ++ body ++ codes "}").
Proof.
  intros Hs Hb Hd. split_and!.
  - by apply lex_states_braces.
  - cbn [pattern]. unfold comment. rewrite !alts_cons. right. left.
    apply seqs_cons. eexists _, _. split; [done|]. split; [by apply lit_lang|].
    apply seqs_cons. eexists body, (codes "}"). split_and!; [done|..].
    + destruct Hb as [|c body Hc Hb]; [by left|]. right. exists [c], body.
      split_and!; [done| |by apply star_no_brace]. exists c. split; [done|].
      simpl in Hd. unfold in_class, in_ranges. simpl. case_match; lia.
    + apply seqs_cons. exists (codes "}"), []. split_and!; [done| |done]. by apply lit_lang.
  - by intros h ?%not_elem_of_nil.
  - by eapply no_digit_first.
Qed.

Lemma list_search {A} (P : A → Prop) (xs : list A) :
  (∀ x, P x ∨ ¬ P x) → (∃ x, x ∈ xs ∧ P x) ∨ ∀ x, x ∈ xs → ¬ P x.
Proof.
  intros Hdec. induction xs as [|x xs IH]; [right; by intros ? ?%not_elem_of_nil|].
  setoid_rewrite elem_of_cons. destruct (Hdec x); [naive_solver|].
  destruct IH as [|Hno]; [naive_solver|]. right. intros y [->|Hy]; auto.
Qed.

(** A text that matches the directive pattern is a directive token. *)
Lemma directive_choice s w :
  s ∈ lex_states → lang ppDirective w →
  (sym_labelNumber ∈ state_tokens s → ¬ lang (Seq digit any_text) w) →
  ∃ t, t ∈ directive_tokens ∧ token_text s t w.
Proof.
  intros Hs Hpp Hdig.
  destruct (list_search (λ h, h ∈ state_tokens s ∧ lang (pattern h) w)
    (preferred sym_ppDirective)) as [(h & Hh & Hin & Hl)|Hno].
  - intros h. destruct (lang_lem (pattern h) w); destruct (decide (h ∈ state_tokens s)); tauto.
  - exists h. split; [by right|]. split_and!; [done..| |by auto].
    intros h'. repeat (apply elem_of_cons in Hh as [->|Hh]; [by intros ?%not_elem_of_nil|]).
    by apply not_elem_of_nil in Hh.
  - exists sym_ppDirective. split; [by left|]. split_and!; [|done| |by auto].
    + by apply lex_states_braces.
    + intros h Hh Hin Hl. by destruct (Hno h Hh).
Qed.

Lemma directive_text s body :
  s ∈ lex_states → Forall (λ c, c ≠ c! "}") body → peek body = c! "$" →
  ∃ t, t ∈ directive_tokens ∧ token_text s t (codes "{" ++ body ++ codes "}").
Proof.
  intros Hs Hb Hd. apply directive_choice; [done| |].
  - left. apply seqs_cons. destruct Hb as [|c body Hc Hb]; simpl in Hd; [done|]. subst c.
    exists (codes "{$"), (body ++ codes "}"). split_and!; [done|by apply lit_lang|].
    apply seqs_cons. eexists body, (codes "}"). split_and!; [done|by apply star_no_brace|].
    apply seqs_cons. exists (codes "}"), []. split_and!; [done| |done]. by apply lit_lang.
  - intros Hl. by eapply (no_digit_first s sym_comment).
Qed.

(** ** Words *)

Lemma letter_tokens_states s :
  s ∈ lex_states → s ≠ 0%nat → s ≠ 33%nat → aux_sym_asmBody_token1 ∉ state_tokens s.
Proof.
  assert (Forall (λ s, s = 0%nat ∨ s = 33%nat
    ∨ symbol_mem aux_sym_asmBody_token1 (state_tokens s) = false) lex_states) as Hall
    by (apply (bool_decide_unpack _); by vm_compute).
  rewrite Forall_forall in Hall. rewrite <- symbol_mem_spec.
  intros [?|[?|Hm]]%Hall; [done..|congruence].
Qed.

Lemma ilit_text s w :
  Forall (λ c, c! "a" ≤ c ≤ c! "z") (codes s) → lang (ilit s) w → tolower <$> w = codes s.
Proof. apply ilit_of_lang. Qed.

Lemma word_text s t w :
  s ∈ lex_states → s ≠ 0%nat → s ≠ 33%nat → Forall (λ c, c ≠ 0) w →
  is_identifier_start (peek w) = true → token_text s t w →
  t = sym_kTrue ∧ tolower <$> w = codes "true"
  ∨ t = sym_kFalse ∧ tolower <$> w = codes "false".
Proof.
  intros Hs H0 H33 Hw Hl Ht. pose proof (token_text_nonempty _ _ _ Ht) as Hne.
  destruct Ht as (Hin & Ht & _). destruct (decide (t ∈ letter_tokens)) as [Hlt|Hlt].
  - repeat (apply elem_of_cons in Hlt as [->|Hlt]).
    + left. split; [done|]. revert Ht. apply ilit_text. concrete.
    + right. split; [done|]. revert Ht. apply ilit_text. concrete.
    + by destruct (letter_tokens_states s).
    + by apply not_elem_of_nil in Hlt.
  - exfalso. apply (regex_incl_sound _ _ _ _ (patterns_no_letter t Hlt) Hw) in Ht as [Ht|Ht].
    { simpl in Ht. by subst w. }
    destruct Ht as (u & v & -> & (c & -> & Hc) & _). simpl in Hl. revert Hc Hl. clear.
    unfold in_class, in_ranges, is_identifier_start, is_ascii_letter. simpl.
    case_match; lia.
Qed.

(** ** The theorems *)

Section lexer.
Context `{TSLexerOk L}.

(** The verdict of [ts_lex] away from the end of the input. *)
Lemma ts_lex_verdict fuel (l : L) s :
  s ∈ lex_states → rest l ≠ [] → (length (rest l) + 1 < fuel)%nat →
  ∃ b l', ts_lex fuel l s = Ret (b, l')
    ∧ ∀ t tl, lexes s (rest l) t tl
        ↔ b = true ∧ result_symbol l' = Z.of_nat (symbol_index t) ∧ token_end l' = tl.
Proof.
  intros Hs Hne Hf.
  destruct (lex_munch ts_lex_cases ts_lex_well_formed fuel s l false (lex_states_lt s Hs) Hf)
    as (b & l' & Hl & Hv).
  exists b, l'. split; [done|]. intros t tl. rewrite lexes_longest, <- munch_longest by done.
  unfold verdict in Hv. destruct (munch ts_lex_cases s (rest l)) as [[t' tl']|].
  - destruct Hv as (-> & -> & ->). split; [by intros [= -> ->]|].
    by intros (_ & ->%(inj Z.of_nat)%(inj symbol_index) & ->).
  - destruct Hv as (-> & _). naive_solver.
Qed.

(** An accepted token is what [lexes] says. *)
Lemma ts_lex_true fuel (l l' : L) s :
  s ∈ lex_states → rest l ≠ [] → (length (rest l) + 1 < fuel)%nat →
  ts_lex fuel l s = Ret (true, l') →
  ∃ t, result_symbol l' = Z.of_nat (symbol_index t) ∧ lexes s (rest l) t (token_end l').
Proof.
  intros Hs Hne Hf Hl.
  destruct (lex_munch ts_lex_cases ts_lex_well_formed fuel s l false (lex_states_lt s Hs) Hf)
    as (b & l1 & Hl1 & Hv). unfold ts_lex in Hl.
  rewrite Hl1 in Hl. injection Hl as -> ->.
  unfold verdict in Hv. destruct (munch ts_lex_cases s (rest l)) as [[t tl]|] eqn:Hm;
    [|by destruct Hv]. destruct Hv as (_ & Hr & ->). exists t. split; [done|].
  by apply lexes_longest, munch_longest.
Qed.

(** C2. Maximal munch: in every lex state of the parser and on every input
    that is not at its end, [ts_lex] returns, and it recognises the token [t]
    ending before [tl] exactly when the longest prefix of the input that
    matches a token pattern of the grammar acceptable in the state is a [t]
    that [tl] follows. *)
Theorem ts_lex_maximal_munch fuel (l : L) s :
  s ∈ lex_states → rest l ≠ [] → (length (rest l) + 1 < fuel)%nat →
  ∃ b l', ts_lex fuel l s = Ret (b, l')
    ∧ ∀ t tl, lexes s (rest l) t tl
        ↔ b = true ∧ result_symbol l' = Z.of_nat (symbol_index t) ∧ token_end l' = tl.
Proof. apply ts_lex_verdict. Qed.

(** C33. A token text [{...}] in any lex state: up to its first closing brace
    the text is exactly one token, whatever follows.  It is a comment, unless
    a dollar sign follows the opening brace; then it is a compiler
    directive. *)
Theorem brace_text_lexed fuel (l : L) s body tl :
  s ∈ lex_states → rest l = codes "{" ++ body ++ codes "}" ++ tl →
  Forall (λ c, c ≠ c! "}") body → Forall (λ c, c ≠ 0) body →
  (length (rest l) + 1 < fuel)%nat →
  ∃ l' t, ts_lex fuel l s = Ret (true, l')
    ∧ result_symbol l' = Z.of_nat (symbol_index t) ∧ token_end l' = tl
    ∧ if peek body =? c! "$" then t ∈ directive_tokens else t = sym_comment.
Proof.
  intros Hs Hr Hb Hb0 Hf.
  destruct (ts_lex_verdict fuel l s Hs) as (b & l' & Hl & Hv); [by rewrite Hr|done|].
  assert (∃ t, token_text s t (codes "{" ++ body ++ codes "}")
    ∧ if peek body =? c! "$" then t ∈ directive_tokens else t = sym_comment)
    as (t & Ht & Hk).
  { destruct (Z.eqb_spec (peek body) (c! "$")) as [Hd|Hd].
    - destruct (directive_text s body Hs Hb Hd) as (t & ? & ?). by exists t.
    - exists sym_comment. split; [by apply comment_text|done]. }
  destruct (proj1 (Hv t tl)) as (-> & Hsym & He); [|by exists l', t].
  exists (codes "{" ++ body ++ codes "}"). rewrite Hr. split_and!; [|..|done|].
  - by rewrite <- !(assoc_L (++)).
  - apply Forall_cons. split; [done|]. apply Forall_app. split; [done|]. by constructor.
  - intros w' tl' t' Heq Hw' Hlen Ht'.
    rewrite (brace_maximal s body tl w' tl' t') in Hlen by done. lia.
Qed.

(** C37. Words belong to the external scanner: where the input starts with a
    letter or an underscore, the internal lexer recognises nothing but the
    literals true and false (in any letter case), in every lex state except
    error recovery and assembler blocks. *)
Theorem words_left_to_scanner fuel (l l' : L) s :
  s ∈ lex_states → s ≠ 0%nat → s ≠ 33%nat →
  is_identifier_start (peek (rest l)) = true → (length (rest l) + 1 < fuel)%nat →
  ts_lex fuel l s = Ret (true, l') →
  ∃ w, rest l = w ++ token_end l'
    ∧ (result_symbol l' = Z.of_nat (symbol_index sym_kTrue) ∧ tolower <$> w = codes "true"
       ∨ result_symbol l' = Z.of_nat (symbol_index sym_kFalse)
         ∧ tolower <$> w = codes "false").
Proof.
  intros Hs Hs0 Hs33 Hp Hf Hl.
  destruct (ts_lex_true fuel l l' s Hs) as (t & Hr & w & Hw & Hw0 & Ht & _); [|done..|].
  { by destruct (rest l). }
  exists w. split; [done|]. rewrite Hr.
  pose proof (token_text_nonempty _ _ _ Ht). rewrite Hw in Hp.
  assert (is_identifier_start (peek w) = true) as Hpw by (by destruct w).
  destruct (word_text s t w Hs Hs0 Hs33 Hw0 Hpw Ht) as [[-> ?]|[-> ?]]; [by left|by right].
Qed.

(** At the end of the input [ts_lex] recognises the end symbol in the
    states that accept it and nothing in the others. *)
Theorem ts_lex_end_of_input fuel (l : L) s :
  s ∈ lex_states → rest l = [] → (1 < fuel)%nat →
  ∃ b l', ts_lex fuel l s = Ret (b, l')
    ∧ b = bool_decide (s ∈ [0; 144; 145]%nat)
    ∧ (b = true → result_symbol l' = Z.of_nat (symbol_index ts_builtin_sym_end)
         ∧ token_end l' = []).
Proof.
  intros Hs Hr Hf.
  destruct (lex_munch ts_lex_cases ts_lex_well_formed fuel s l false (lex_states_lt s Hs))
    as (b & l' & Hl & Hv); [by rewrite Hr|].
  exists b, l'. split; [done|]. rewrite Hr in Hv.
  assert (Forall (λ s, munch ts_lex_cases s [] = if bool_decide (s ∈ [0; 144; 145]%nat)
    then Some (ts_builtin_sym_end, []) else None) lex_states) as Hall
    by (apply (bool_decide_unpack _); by vm_compute).
  rewrite Forall_forall in Hall. rewrite (Hall s Hs) in Hv.
  destruct (bool_decide _); simpl in Hv; [|by destruct Hv as (-> & _)].
  by destruct Hv as (-> & -> & ->).
Qed.
End lexer.

(** No text is ambiguous: in a lex state, it is a token of at most one
    type. *)
Theorem tokens_unambiguous s w t1 t2 :
  s ∈ lex_states → Forall (λ c, c ≠ 0) w →
  token_text s t1 w → token_text s t2 w → t1 = t2.
Proof. intros Hs Hw. rewrite !lex_state_language by done. congruence. Qed.

(** ** Witnesses *)

Lemma ts_lex_maximal_munch_witness :
  ∃ b l', ts_lex 20 (str_lexer ":= 1") 15 = Ret (b, l')
    ∧ ∀ t tl, lexes 15 (rest (str_lexer ":= 1")) t tl
        ↔ b = true ∧ result_symbol l' = Z.of_nat (symbol_index t) ∧ token_end l' = tl.
Proof. refine (ts_lex_maximal_munch 20 (str_lexer ":= 1") 15 _ _ _); concrete. Defined.

Lemma brace_text_lexed_witness :
  ∃ l' t, ts_lex 40 (str_lexer "{$R *.dfm} begin") 2 = Ret (true, l')
    ∧ result_symbol l' = Z.of_nat (symbol_index t) ∧ token_end l' = codes " begin"
    ∧ if peek (codes "$R *.dfm") =? c! "$" then t ∈ directive_tokens else t = sym_comment.
Proof.
  refine (brace_text_lexed 40 (str_lexer "{$R *.dfm} begin") 2 (codes "$R *.dfm")
    (codes " begin") _ _ _ _ _); concrete.
Defined.

Lemma words_left_to_scanner_witness :
  ∃ w, codes "True;" = w ++ codes ";"
    ∧ (Z.of_nat (symbol_index sym_kTrue) = Z.of_nat (symbol_index sym_kTrue)
       ∧ tolower <$> w = codes "true"
       ∨ Z.of_nat (symbol_index sym_kTrue) = Z.of_nat (symbol_index sym_kFalse)
         ∧ tolower <$> w = codes "false").
Proof.
  refine (words_left_to_scanner (L:=StrLexer) 20 (str_lexer "True;")
    (MkStrLexer (codes ";") (codes ";") (Z.of_nat (symbol_index sym_kTrue))) 2
    _ _ _ _ _ _); concrete.
Defined.

Lemma ts_lex_end_of_input_witness :
  ∃ b l', ts_lex 5 (str_lexer "") 144 = Ret (b, l')
    ∧ b = bool_decide (144%nat ∈ [0; 144; 145]%nat)
    ∧ (b = true → result_symbol l' = Z.of_nat (symbol_index ts_builtin_sym_end)
         ∧ token_end l' = []).
Proof. refine (ts_lex_end_of_input 5 (str_lexer "") 144 _ _ _); concrete. Defined.

Lemma tokens_unambiguous_witness : sym_comment = sym_comment.
Proof.
  refine (tokens_unambiguous 2 (codes "{x}") sym_comment sym_comment _ _ _ _);
    [concrete|concrete|..]; apply (comment_text 2 (codes "x")); concrete.
Defined.
