(* ===== verification/LexForms.v ===== *)
(** * More token forms of the generated lexer

    The tokens that start with a parenthesis and a star, and label numbers:
    consequences of the language theorem of [LexTheorems.v] and of inclusions
    between patterns that are checked by exploring derivatives. *)

From S2P Require Import Prelude.
From S2P Require Import Lexer.
From S2P Require Import Chars.
From S2P Require Import Symbols.
From S2P Require Import LexTable.
From S2P Require Import LexDfa.
From S2P Require Import Regex.
From S2P Require Import LexCheck.
From S2P Require Import LexTokens.
From S2P Require Import LexTheorems.

(** ** Texts in parentheses and stars *)

(** The body ends at the first closing mark of the text. *)
Definition ends_first (body : list Z) : Prop :=
  ∀ u v, body ++ codes "*)" = u ++ codes "*)" ++ v → v = [].

(** A text that starts with an opening mark and ends at its first closing
    mark. *)
Definition star_closed : regex :=
  Seq (lit "(*") (Diff (Seq any_text (lit "*)"))
                       (seqs [any_text; lit "*)"; Cls true []; any_text])).

Definition star_shape : regex :=
  Alt star_closed (Diff any_text (Seq (lit "(*") any_text)).

Lemma star_closed_text w :
  lang star_closed w ↔ ∃ body, w = codes "(*" ++ body ++ codes "*)" ∧ ends_first body.
Proof.
  assert (∀ v, lang (seqs [any_text; lit "*)"; Cls true []; any_text]) v
    ↔ ∃ u c x, v = u ++ codes "*)" ++ c :: x) as Hearly.
  { intros v. split.
    - intros (u & v1 & -> & _ & Hv)%seqs_cons.
      apply seqs_cons in Hv as (? & v2 & -> & ->%lit_lang & Hv).
      apply seqs_cons in Hv as (? & x & -> & (c & -> & _) & _). by exists u, c, x.
    - intros (u & c & x & ->). apply seqs_cons. exists u, (codes "*)" ++ c :: x).
      split_and!; [done|apply any_text_lang|]. apply seqs_cons. exists (codes "*)"), (c :: x).
      split_and!; [done|by apply lit_lang|]. apply seqs_cons. exists [c], x.
      split_and!; [done|by exists c|]. apply seqs_cons. exists x, [].
      split_and!; [by rewrite app_nil_r|apply any_text_lang|done]. }
  cbn [lang star_closed]. split.
  - intros (a & v & -> & ->%lit_lang & (body & e & -> & _ & ->%lit_lang) & Hno).
    exists body. split; [done|]. intros u x Heq. destruct x as [|c x]; [done|].
    destruct Hno. apply Hearly. rewrite Heq. eauto.
  - intros (body & -> & Hf). exists (codes "(*"), (body ++ codes "*)").
    split_and!; [done|by apply lit_lang| |].
    + exists body, (codes "*)"). split_and!; [done|apply any_text_lang|by apply lit_lang].
    + intros (u & c & x & Heq)%Hearly. by apply Hf in Heq.
Qed.

Lemma patterns_star_shape t : regex_incl 500 (pattern t) star_shape = true.
Proof.
  apply (symbol_forall (λ t, regex_incl 500 (pattern t) star_shape)). by vm_compute.
Qed.

Lemma star_comment_incl :
  regex_incl 500 (Diff star_closed (Seq (lit "(*$") any_text)) comment = true.
Proof. by vm_compute. Qed.

Lemma star_directive_incl :
  regex_incl 500 (Diff star_closed (Diff any_text (Seq (lit "(*$") any_text))) ppDirective
  = true.
Proof. by vm_compute. Qed.

(** Two such bodies before the same text are equal. *)
Lemma ends_first_unique b1 b2 tl1 tl2 :
  ends_first b1 → ends_first b2 →
  b1 ++ codes "*)" ++ tl1 = b2 ++ codes "*)" ++ tl2 → b1 = b2.
Proof.
  assert (∀ b1 b2 tl1 tl2, ends_first b2 → (length b1 < length b2)%nat →
    b1 ++ codes "*)" ++ tl1 = b2 ++ codes "*)" ++ tl2 → False) as Hlt.
  { clear. intros b1 b2 tl1 tl2 Hf Hl Heq.
    assert (take (length b2 + 2) (b1 ++ codes "*)" ++ tl1) = b2 ++ codes "*)") as Ht.
    { rewrite Heq, (assoc_L (++)), take_app_le by (rewrite length_app; simpl; lia).
      by rewrite take_ge by (rewrite length_app; simpl; lia). }
    rewrite (assoc_L (++)), take_app_ge in Ht by (rewrite length_app; simpl; lia).
    rewrite <- (assoc_L (++)) in Ht. symmetry in Ht. apply Hf in Ht.
    apply (f_equal length) in Ht. rewrite length_take, length_app in Ht. simpl in Ht.
    apply (f_equal length) in Heq. rewrite !length_app in Heq. simpl in Heq. lia. }
  intros H1 H2 Heq. destruct (Nat.lt_trichotomy (length b1) (length b2)) as [Hl|[Hl|Hl]].
  - by destruct (Hlt b1 b2 tl1 tl2).
  - by apply app_inj_1 in Heq as [? _].
  - by destruct (Hlt b2 b1 tl2 tl1).
Qed.

Lemma star_maximal s body tl w' tl' t' :
  ends_first body → Forall (λ c, c ≠ 0) w' → (1 < length w')%nat →
  codes "(*" ++ body ++ codes "*)" ++ tl = w' ++ tl' → token_text s t' w' →
  w' = codes "(*" ++ body ++ codes "*)".
Proof.
  intros Hb Hw' Hl Heq (_ & Ht & _).
  apply (regex_incl_sound _ _ _ _ (patterns_star_shape t') Hw') in Ht as [Ht|[_ Ht]].
  - apply star_closed_text in Ht as (u & -> & Hu). do 2 f_equal.
    rewrite <- !(assoc_L (++)) in Heq.
    assert (body ++ codes "*)" ++ tl = u ++ codes "*)" ++ tl') as Heq'
      by (by injection Heq).
    symmetry. by eapply ends_first_unique.
  - exfalso. apply Ht. destruct w' as [|c1 [|c2 w']]; simpl in Hl; [lia..|].
    injection Heq as <- <- _. exists (codes "(*"), w'.
    split_and!; [done|by apply lit_lang|apply any_text_lang].
Qed.

Lemma star_text s body :
  s ∈ lex_states → ends_first body → Forall (λ c, c ≠ 0) body →
  ∃ t, token_text s t (codes "(*" ++ body ++ codes "*)")
    ∧ if peek body =? c! "$" then t ∈ directive_tokens else t = sym_comment.
Proof.
  intros Hs Hf Hb. set (w := codes "(*" ++ body ++ codes "*)").
  assert (Forall (λ c, c ≠ 0) w) as Hw.
  { apply Forall_app_2; [concrete|]. apply Forall_app_2; [done|concrete]. }
  assert (lang star_closed w) as Hc by (apply star_closed_text; eauto).
  assert (lang (Seq (lit "(*$") any_text) w ↔ peek body = c! "$") as Hd.
  { split.
    - intros (u & v & Heq & ->%lit_lang & _).
      apply (f_equal (λ x, x !! 2%nat)) in Heq.
      destruct body as [|c body]; vm_compute in Heq; by simplify_eq.
    - destruct body as [|c body]; [done|]. intros Hp. simpl in Hp. subst c.
      exists (codes "(*$"), (body ++ codes "*)").
      split_and!; [done|by apply lit_lang|apply any_text_lang]. }
  destruct (Z.eqb_spec (peek body) (c! "$")) as [Hp|Hp].
  - destruct (directive_choice s w Hs) as (t & ? & ?); [| |by exists t].
    + apply (regex_incl_sound _ _ _ _ star_directive_incl Hw). split; [done|].
      intros [_ Hno]. by apply Hno, Hd.
    + intros Hl. by eapply (no_digit_first s sym_comment).
  - exists sym_comment. split; [|done]. split_and!.
    + by apply lex_states_braces.
    + apply (regex_incl_sound _ _ _ _ star_comment_incl Hw). split; [done|]. by rewrite Hd.
    + by intros h ?%not_elem_of_nil.
    + by eapply no_digit_first.
Qed.

(** ** Label numbers *)

Definition is_digit (c : Z) : bool := (c! "0" <=? c) && (c <=? c! "9").

Lemma digit_class c : in_class false [digits_range] c = is_digit c.
Proof. unfold in_class, in_ranges, is_digit. simpl. by rewrite orb_false_r. Qed.

Lemma label_number_text w :
  lang (pattern sym_labelNumber) w ↔ w ≠ [] ∧ Forall (λ c, is_digit c = true) w.
Proof.
  cbn [pattern]. unfold plus. cbn [lang]. split.
  - intros (u & v & -> & (c & -> & Hc) & Hv). split; [done|].
    apply (star_cls_lang false [digits_range]) in Hv. rewrite digit_class in Hc.
    constructor; [done|]. eapply Forall_impl; [done|]. intros c' Hc'. by rewrite <- digit_class.
  - intros [Hne Hw]. destruct Hw as [|c w Hc Hw]; [done|]. exists [c], w.
    split_and!; [done|exists c; by rewrite digit_class|].
    apply (star_cls_lang false [digits_range]). eapply Forall_impl; [done|].
    intros c' Hc'. by rewrite digit_class.
Qed.

Section lexer.
Context `{TSLexerOk L}.

(** C34. A text between parenthesis-star marks, in any lex state: up to its
    first closing mark the text is exactly one token, whatever follows.  It is
    a comment, unless a dollar sign follows the opening mark; then it is a
    compiler directive. *)
Theorem star_text_lexed fuel (l : L) s body tl :
  s ∈ lex_states → rest l = codes "(*" ++ body ++ codes "*)" ++ tl →
  ends_first body → Forall (λ c, c ≠ 0) body → (length (rest l) + 1 < fuel)%nat →
  ∃ l' t, ts_lex fuel l s = Ret (true, l')
    ∧ result_symbol l' = Z.of_nat (symbol_index t) ∧ token_end l' = tl
    ∧ if peek body =? c! "$" then t ∈ directive_tokens else t = sym_comment.
Proof.
  intros Hs Hr Hf Hb Hfuel.
  destruct (ts_lex_verdict fuel l s Hs) as (b & l' & Hl & Hv); [by rewrite Hr|done|].
  destruct (star_text s body Hs Hf Hb) as (t & Ht & Hk).
  destruct (proj1 (Hv t tl)) as (-> & Hsym & He); [|by exists l', t].
  exists (codes "(*" ++ body ++ codes "*)"). rewrite Hr. split_and!; [|..|done|].
  - by rewrite <- !(assoc_L (++)).
  - apply Forall_app_2; [concrete|]. apply Forall_app_2; [done|concrete].
  - intros w' tl' t' Heq Hw' Hlen Ht'. rewrite !length_app in Hlen. simpl in Hlen.
    rewrite (star_maximal s body tl w' tl' t') in Hlen by (done || lia).
    rewrite !length_app in Hlen. simpl in Hlen. lia.
Qed.

(** Where the parser accepts a label number, a run of digits is a label
    number and ends with the digits, even when a digit separator, a fraction
    or an exponent follows. *)
Theorem label_number_lexed fuel (l : L) s w tl :
  s ∈ lex_states → sym_labelNumber ∈ state_tokens s →
  rest l = w ++ tl → w ≠ [] → Forall (λ c, is_digit c = true) w →
  is_digit (peek tl) = false → (length (rest l) + 1 < fuel)%nat →
  ∃ l', ts_lex fuel l s = Ret (true, l')
    ∧ result_symbol l' = Z.of_nat (symbol_index sym_labelNumber) ∧ token_end l' = tl.
Proof.
  intros Hs Hlab Hr Hne Hw Htl Hf.
  destruct (ts_lex_verdict fuel l s Hs) as (b & l' & Hl & Hv).
  { rewrite Hr. by destruct w. } { done. }
  destruct (proj1 (Hv sym_labelNumber tl)) as (-> & Hsym & He); [|by exists l'].
  assert (∀ v, Forall (λ c, is_digit c = true) v → Forall (λ c, c ≠ 0) v) as Hnz.
  { intros v Hv0. eapply Forall_impl; [done|]. unfold is_digit. intros c Hc. simpl in *. lia. }
  exists w. rewrite Hr. split_and!; [done|by apply Hnz| |].
  - split_and!; [done|by apply label_number_text|by intros h ?%not_elem_of_nil|done].
  - intros w' tl' t' Heq Hw' Hlen (_ & Ht & _ & Hd).
    destruct (decide (t' = sym_labelNumber)) as [->|Hdif].
    + apply label_number_text in Ht as [_ Hdig].
      assert (w' !! length w = (w ++ tl) !! length w) as Hlook
        by (by rewrite Heq, lookup_app_l).
      rewrite lookup_app_r, Nat.sub_diag in Hlook by done.
      destruct (lookup_lt_is_Some_2 w' (length w) Hlen) as [c Hc].
      pose proof (Forall_lookup_1 _ _ _ _ Hdig Hc) as Hcd. simpl in Hcd.
      rewrite Hc in Hlook. destruct tl as [|z tl]; [done|]. cbn in Hlook, Htl.
      congruence.
    + apply (Hd Hlab Hdif). destruct Hw as [|c w Hc Hw]; [done|].
      destruct w' as [|c' w']; simpl in Hlen; [lia|]. injection Heq as <- _.
      exists [c], w'. split_and!; [done| |apply any_text_lang]. exists c.
      by rewrite digit_class.
Qed.
End lexer.

(** ** Witnesses *)

Lemma star_text_lexed_witness :
  ∃ l' t, ts_lex 40 (str_lexer "(* x * y *) begin") 2 = Ret (true, l')
    ∧ result_symbol l' = Z.of_nat (symbol_index t) ∧ token_end l' = codes " begin"
    ∧ if peek (codes " x * y ") =? c! "$" then t ∈ directive_tokens else t = sym_comment.
Proof.
  refine (star_text_lexed 40 (str_lexer "(* x * y *) begin") 2 (codes " x * y ")
    (codes " begin") _ _ _ _ _); [concrete|concrete| |concrete|concrete].
  intros u v Heq.
  change (codes " x * y " ++ codes "*)") with [32; 120; 32; 42; 32; 121; 32; 42; 41] in Heq.
  change (codes "*)") with [42; 41] in Heq.
  do 9 (destruct u as [|? u]; simpl in Heq; [by simplify_eq|]). by destruct u.
Defined.
