(* ===== verification/LexLiterals.v ===== *)
(** * Literals

    Number and string literals as the generated lexer reads them.  A decimal
    number ends before a range ([1..5]) or a word; a text in quotes
    ends at the next quote, so that a string printed with doubled quotes is read
    back as the pieces between them. *)

From S2P Require Import Prelude.
From S2P Require Import Lexer.
From S2P Require Import Chars.
From S2P Require Import Symbols.
From S2P Require Import LexTable.
From S2P Require Import LexDfa.
From S2P Require Import Regex.
From S2P Require Import LexCheck.
From S2P Require Import LexTokens.
From S2P Require Import LexTheorems.
From S2P Require Import LexForms.

(** ** Characters of numbers *)

Definition is_digit_ (c : Z) : bool := is_digit c || (c =? c! "_").
Definition is_hex (c : Z) : bool :=
  is_digit c || (c! "a" <=? c) && (c <=? c! "f") || (c! "A" <=? c) && (c <=? c! "F").
Definition is_hex_ (c : Z) : bool := is_hex c || (c =? c! "_").
Definition is_bin (c : Z) : bool := (c =? c! "0") || (c =? c! "1").
Definition is_bin_ (c : Z) : bool := is_bin c || (c =? c! "_").
Definition is_sign (c : Z) : bool := (c =? c! "-") || (c =? c! "+").
Definition is_exponent (c : Z) : bool := (c =? c! "e") || (c =? c! "E").

(** A text starts with an exponent. *)
Definition starts_exponent (tl : list Z) : bool :=
  is_exponent (peek tl)
  && (is_digit (peek (tail tl)) || is_sign (peek (tail tl)) && is_digit (peek (tail (tail tl)))).

(** A decimal number with the fraction [F] and the exponent [X], either of which
    may be empty, goes on: with a digit or a separator, with an exponent if it has
    none, or with a fraction if it has neither. *)
Definition number_goes_on (F X tl : list Z) : bool :=
  is_digit_ (peek tl)
  || match X with
     | [] => starts_exponent tl
             || match F with [] => (peek tl =? c! ".") && is_digit (peek (tail tl)) | _ => false end
     | _ => false
     end.

Inductive fraction_text : list Z → Prop :=
  | no_fraction : fraction_text []
  | fraction d ds :
      is_digit d = true → Forall (λ c, is_digit_ c = true) ds → fraction_text (c! "." :: d :: ds).

Definition sign_text (sign : list Z) : Prop :=
  Forall (λ c, is_sign c = true) sign ∧ (length sign ≤ 1)%nat.

Inductive exponent_text : list Z → Prop :=
  | no_exponent : exponent_text []
  | exponent e sign d ds :
      is_exponent e = true → sign_text sign → is_digit d = true →
      Forall (λ c, is_digit_ c = true) ds → exponent_text (e :: sign ++ d :: ds).

(** The text [w] before [tl] is a number of the given token. *)
Inductive number_form : ts_symbol → list Z → list Z → Prop :=
  | decimal_form sign d ds F X tl :
      sign_text sign → is_digit d = true → Forall (λ c, is_digit_ c = true) ds →
      fraction_text F → exponent_text X → number_goes_on F X tl = false →
      number_form (if F ++ X is [] then aux_sym__literalInt_token1 else aux_sym__literalFloat_token1)
        (sign ++ d :: ds ++ F ++ X) tl
  | hex_form d ds tl :
      is_hex d = true → Forall (λ c, is_hex_ c = true) ds → is_hex_ (peek tl) = false →
      number_form aux_sym__literalInt_token2 (c! "$" :: d :: ds) tl
  | binary_form d ds tl :
      is_bin d = true → Forall (λ c, is_bin_ c = true) ds → is_bin_ (peek tl) = false →
      number_form aux_sym__literalInt_token3 (c! "%" :: d :: ds) tl.

(** ** Strings *)

(** The text of a string literal: quotes are doubled. *)
Definition quote_string (str : list Z) : list Z :=
  c! "'" :: List.flat_map (λ c, if c =? c! "'" then codes "''" else [c]) str ++ [c! "'"].

(** The string a sequence of quoted pieces stands for: a quote between any two. *)
Fixpoint join_pieces (ps : list (list Z)) : list Z :=
  match ps with
  | [] => []
  | [p] => p
  | p :: ps => p ++ c! "'" :: join_pieces ps
  end.

(** The pieces of a string between its quotes. *)
Fixpoint pieces (str : list Z) : list (list Z) :=
  match str with
  | [] => [[]]
  | c :: str =>
      if c =? c! "'" then [] :: pieces str
      else match pieces str with p :: ps => (c :: p) :: ps | [] => [[c]] end
  end.

Definition quoted (p : list Z) : list Z := codes "'" ++ p ++ codes "'".

(** ** Shapes of the patterns *)

Definition signs : list (Z * Z) := [(c! "-", c! "-"); (c! "+", c! "+")].

Definition number_start : regex := seqs [opt (Cls false signs); digit; any_text].

Definition fraction_pattern : regex := seqs [lit "."; digit; Star digit_].

Definition exponent_pattern : regex :=
  seqs [Cls false [(c! "e", c! "e"); (c! "E", c! "E")]; opt (Cls false signs); digit; Star digit_].

(** What starts like a number is a number, with a fraction or an exponent. *)
Definition number_shape : regex :=
  Alt (Diff any_text number_start)
      (seqs [Cls false (digits_range :: signs); Star digit_; opt fraction_pattern;
             opt exponent_pattern]).

(** What starts with the character [c] goes on with characters of a class. *)
Definition prefixed_shape (c : Z) (cls : list (Z * Z)) : regex :=
  Alt (Diff any_text (Seq (Cls false [(c, c)]) any_text))
      (Seq (Cls false [(c, c)]) (Star (Cls false cls))).

Definition hex_class : list (Z * Z) :=
  [(c! "a", c! "f"); (c! "A", c! "F"); digits_range; underscore].
Definition bin_class : list (Z * Z) := [(c! "0", c! "0"); (c! "1", c! "1"); underscore].

(** A token that starts with a quote ends at the next one. *)
Definition quote_shape : regex :=
  Alt (seqs [lit "'"; Star (none_of "'"); lit "'"]) (Alt Eps (Seq (none_of "'") any_text)).

Definition literal_shapes : list regex :=
  [number_shape; prefixed_shape (c! "$") hex_class; prefixed_shape (c! "%") bin_class; quote_shape].

Lemma patterns_literal_shapes t r :
  r ∈ literal_shapes → regex_incl 500 (pattern t) r = true.
Proof.
  pose proof (symbol_forall (λ t, forallb (regex_incl 500 (pattern t)) literal_shapes)
    ltac:(by vm_compute) t) as Hall. rewrite forallb_forall in Hall.
  intros Hr. by apply Hall, list_elem_of_In.
Qed.

Lemma pattern_shape t r w :
  r ∈ literal_shapes → Forall (λ c, c ≠ 0) w → lang (pattern t) w → lang r w.
Proof. intros Hr. apply (regex_incl_sound 500), patterns_literal_shapes, Hr. Qed.

(** ** Classes *)

Lemma digit_class_ c : in_class false [digits_range; underscore] c = is_digit_ c.
Proof. unfold in_class, in_ranges, is_digit_, is_digit. simpl. lia. Qed.

Lemma hex_class_ c : in_class false hex_class c = is_hex_ c.
Proof. unfold in_class, in_ranges, is_hex_, is_hex, is_digit. simpl. lia. Qed.

Lemma hex_class_first c :
  in_class false [(c! "a", c! "f"); (c! "A", c! "F"); digits_range] c = is_hex c.
Proof. unfold in_class, in_ranges, is_hex, is_digit. simpl. lia. Qed.

Lemma bin_class_ c : in_class false bin_class c = is_bin_ c.
Proof. unfold in_class, in_ranges, is_bin_, is_bin. simpl. lia. Qed.

Lemma bin_class_first c : in_class false [(c! "0", c! "0"); (c! "1", c! "1")] c = is_bin c.
Proof. unfold in_class, in_ranges, is_bin. simpl. lia. Qed.

Lemma sign_class c : in_class false signs c = is_sign c.
Proof. unfold in_class, in_ranges, is_sign. simpl. lia. Qed.

Lemma exponent_class c : in_class false [(c! "e", c! "e"); (c! "E", c! "E")] c = is_exponent c.
Proof. unfold in_class, in_ranges, is_exponent. simpl. lia. Qed.

(** A run of characters of a class, as a predicate. *)
Lemma star_class rs (p : Z → bool) w :
  (∀ c, in_class false rs c = p c) →
  lang (Star (Cls false rs)) w ↔ Forall (λ c, p c = true) w.
Proof.
  intros Hp. rewrite star_cls_lang. split; intros Hw; (eapply Forall_impl; [done|]);
    intros c; cbn beta; by rewrite Hp.
Qed.

(** The longest run of characters of a class is unique. *)
Lemma span_unique (p : Z → bool) a b x y :
  Forall (λ c, p c = true) a → Forall (λ c, p c = true) b →
  p (peek x) = false → p (peek y) = false → a ++ x = b ++ y → a = b ∧ x = y.
Proof.
  intros Ha. revert b. induction Ha as [|c a Hc _ IH]; intros b Hb Hx Hy Heq.
  - destruct Hb as [|c' b Hc' _]; [done|]. simpl in Heq. subst x. simpl in Hx. congruence.
  - destruct Hb as [|c' b Hc' Hb]; simpl in Heq.
    + subst y. simpl in Hy. congruence.
    + injection Heq as -> Heq. by destruct (IH b Hb Hx Hy Heq) as [-> ->].
Qed.

(** ** The longest match *)

(** A longer prefix of a text extends a shorter one. *)
Lemma longer_prefix {A} (w w' tl tl' : list A) :
  w ++ tl = w' ++ tl' → (length w < length w')%nat → ∃ u, w' = w ++ u ∧ u ≠ [] ∧ tl = u ++ tl'.
Proof.
  intros Heq Hl. exists (drop (length w) w').
  assert (w' = w ++ drop (length w) w') as Hw'.
  { rewrite <- (take_drop (length w) w') at 1. f_equal.
    apply (f_equal (take (length w))) in Heq.
    rewrite take_app_length, take_app_le in Heq by lia. done. }
  split_and!; [done| |].
  - intros Hn. apply (f_equal length) in Hn. rewrite length_drop in Hn. simpl in Hn. lia.
  - rewrite Hw', <- (assoc_L (++)) in Heq. by apply app_inv_head in Heq.
Qed.

(** No extension of a text that starts with [c] and goes on with a class. *)
Lemma prefixed_maximal c cls (p : Z → bool) t ds u tl :
  prefixed_shape c cls ∈ literal_shapes → (∀ c, in_class false cls c = p c) →
  p (peek (u ++ tl)) = false → u ≠ [] → Forall (λ c, c ≠ 0) (c :: ds ++ u) →
  ¬ lang (pattern t) (c :: ds ++ u).
Proof.
  intros Hin Hp Hend Hu Hw Ht. apply (pattern_shape t _ _ Hin Hw) in Ht as [[_ Hno]|Ht].
  - apply Hno. exists [c], (ds ++ u). split_and!; [done| |apply any_text_lang].
    exists c. split; [done|]. unfold in_class, in_ranges. simpl. lia.
  - destruct Ht as (a & v & Heq & (c' & -> & _) & Hv%(star_class _ p)); [|done].
    injection Heq as <- <-. apply Forall_app in Hv as [_ Hv].
    destruct Hv as [|c' u Hc' _]; [done|]. simpl in Hend. congruence.
Qed.

(** ** Decimal numbers *)

Lemma opt_sign_text sign : lang (opt (Cls false signs)) sign ↔ sign_text sign.
Proof.
  unfold sign_text. split.
  - intros [->|(c & -> & Hc)]; [by split; [constructor|simpl; lia]|].
    rewrite sign_class in Hc. split; [by repeat constructor|simpl; lia].
  - intros [Hs Hl]. destruct Hs as [|c sign Hc Hs]; [by left|]. destruct sign; simpl in Hl; [|lia].
    right. exists c. by rewrite sign_class.
Qed.

Lemma star_digits ds : lang (Star digit_) ds ↔ Forall (λ c, is_digit_ c = true) ds.
Proof. apply star_class. intros. apply digit_class_. Qed.

Lemma digits_text v : lang number v ↔ ∃ d ds, v = d :: ds ∧ is_digit d = true
  ∧ Forall (λ c, is_digit_ c = true) ds.
Proof.
  split.
  - intros (? & ds & -> & (d & -> & Hd) & Hds%star_digits). rewrite digit_class in Hd. by exists d, ds.
  - intros (d & ds & -> & Hd & Hds). exists [d], ds.
    split_and!; [done|exists d; by rewrite digit_class|by apply star_digits].
Qed.

Lemma fraction_pattern_text F : lang (opt fraction_pattern) F ↔ fraction_text F.
Proof.
  split.
  - intros [->|HF]; [constructor|]. apply seqs_cons in HF as (? & v & -> & ->%lit_lang & Hv).
    apply seqs_cons in Hv as (? & v' & -> & (d & -> & Hd) & Hv). rewrite digit_class in Hd.
    apply seqs_cons in Hv as (ds & ? & -> & Hds%star_digits & ->). rewrite app_nil_r. by constructor.
  - intros [|d ds Hd Hds]; [by left|]. right. apply seqs_cons. exists (codes "."), (d :: ds).
    split_and!; [done|by apply lit_lang|]. apply seqs_cons. exists [d], ds.
    split_and!; [done|exists d; by rewrite digit_class|]. apply seqs_cons. exists ds, [].
    by split_and!; [rewrite app_nil_r|apply star_digits|].
Qed.

Lemma exponent_pattern_text X : lang (opt exponent_pattern) X ↔ exponent_text X.
Proof.
  split.
  - intros [->|HX]; [constructor|]. apply seqs_cons in HX as (? & v & -> & (e & -> & He) & Hv).
    rewrite exponent_class in He. apply seqs_cons in Hv as (sign & v' & -> & Hs%opt_sign_text & Hv).
    apply seqs_cons in Hv as (? & v2 & -> & (d & -> & Hd) & Hv). rewrite digit_class in Hd.
    apply seqs_cons in Hv as (ds & ? & -> & Hds%star_digits & ->). rewrite app_nil_r. by constructor.
  - intros [|e sign d ds He Hs Hd Hds]; [by left|]. right. apply seqs_cons.
    exists [e], (sign ++ d :: ds). split_and!; [done|exists e; by rewrite exponent_class|].
    apply seqs_cons. exists sign, (d :: ds). split_and!; [done|by apply opt_sign_text|].
    apply seqs_cons. exists [d], ds. split_and!; [done|exists d; by rewrite digit_class|].
    apply seqs_cons. exists ds, []. by split_and!; [rewrite app_nil_r|apply star_digits|].
Qed.

Lemma number_shape_text c v :
  lang number_shape (c :: v) → lang number_start (c :: v) →
  ∃ ds F X, v = ds ++ F ++ X ∧ Forall (λ c, is_digit_ c = true) ds ∧ fraction_text F
    ∧ exponent_text X.
Proof.
  intros [[_ Hno]|Ht] Hs; [done|]. apply seqs_cons in Ht as (? & v' & Heq & (c' & -> & _) & Hv).
  injection Heq as _ ->. apply seqs_cons in Hv as (ds & v2 & -> & Hds%star_digits & Hv).
  apply seqs_cons in Hv as (F & v3 & -> & HF%fraction_pattern_text & Hv).
  apply seqs_cons in Hv as (X & v4 & -> & HX%exponent_pattern_text & Hv). simpl in Hv. subst v4.
  exists ds, F, X. by rewrite app_nil_r.
Qed.

Lemma exponent_not_digit e : is_exponent e = true → is_digit_ e = false ∧ e ≠ c! ".".
Proof. unfold is_exponent, is_digit_, is_digit. lia. Qed.

(** A fraction and an exponent do not start with a digit. *)
Lemma exponent_head X tl : exponent_text X → is_digit_ (peek tl) = false →
  is_digit_ (peek (X ++ tl)) = false.
Proof. intros [|e sign d ds He%exponent_not_digit _ _ _] Htl; [done|]. cbn. tauto. Qed.

Lemma fraction_head F tl : fraction_text F → is_digit_ (peek tl) = false →
  is_digit_ (peek (F ++ tl)) = false.
Proof. by intros []. Qed.

Lemma exponent_starts X tl : exponent_text X → X ≠ [] → starts_exponent (X ++ tl) = true.
Proof.
  intros [|e sign d ds He [Hs Hl] Hd _] Hne; [done|]. unfold starts_exponent. cbn [app peek tail].
  rewrite He. destruct Hs as [|c sign Hc Hs]; [by cbn; rewrite Hd|].
  destruct sign; simpl in Hl; [|lia]. cbn. rewrite Hc, Hd. by rewrite orb_true_r.
Qed.

(** Nothing extends an exponent but digits. *)
Lemma exponent_extended X u X' :
  exponent_text X → exponent_text X' → X ++ u = X' → u ≠ [] →
  is_digit_ (peek u) = true ∨ X = [] ∧ starts_exponent u = true.
Proof.
  intros HX HX' Heq Hu. destruct HX as [|e sign d ds He Hs Hd Hds].
  { right. split; [done|]. cbn [app] in Heq. subst u. rewrite <- (app_nil_r X').
    by apply exponent_starts. }
  left. inversion HX' as [|e' sign' d' ds' _ Hs' Hd' Hds']; subst; [done|].
  injection H as -> H. assert (ds' = ds ++ u) as ->.
  { destruct Hs as [Hs Hl], Hs' as [Hs' Hl'].
    assert (∀ c, is_digit c = true → is_sign c = true → False) as Hno
      by (unfold is_digit, is_sign; lia).
    destruct Hs as [|c sign Hc Hs], Hs' as [|c' sign' Hc' Hs']; cbn [app] in H.
    - by injection H.
    - injection H as -> _. by destruct (Hno d).
    - injection H as -> _. by destruct (Hno c).
    - destruct sign, sign'; simpl in *; [|lia..]. by injection H. }
  apply Forall_app in Hds' as [_ Hu']. by destruct Hu'.
Qed.

Lemma number_maximal t c ds F X u tl :
  lang number_start (c :: (ds ++ F ++ X) ++ u) → Forall (λ c, is_digit_ c = true) ds →
  fraction_text F → exponent_text X → number_goes_on F X (u ++ tl) = false → u ≠ [] →
  Forall (λ c, c ≠ 0) (c :: (ds ++ F ++ X) ++ u) → ¬ lang (pattern t) (c :: (ds ++ F ++ X) ++ u).
Proof.
  intros Hstart Hds HF HX Hend Hu Hw Ht.
  apply (pattern_shape t number_shape) in Ht; [|by apply elem_of_cons; left|done].
  destruct (number_shape_text _ _ Ht Hstart) as (ds' & F' & X' & Heq & Hds' & HF' & HX').
  unfold number_goes_on in Hend. apply orb_false_iff in Hend as [Hd Hend].
  assert (peek (u ++ tl) = peek u) as Hpu by (by destruct u). rewrite Hpu in Hd.
  rewrite <- !(assoc_L (++)) in Heq.
  apply (span_unique is_digit_) in Heq as [_ Heq]; [|done|done|..].
  2: { by apply fraction_head, exponent_head. }
  2: { apply fraction_head; [done|]. rewrite <- (app_nil_r X'). by apply exponent_head. }
  assert (X ++ u = X') as HXu.
  { destruct HF as [|e es He Hes], HF' as [|e' es' He' Hes']; cbn [app] in Heq.
    - done.
    - exfalso. destruct HX as [|x sg k ks Hx%exponent_not_digit _ _ _]; cbn [app] in Heq.
      + subst u. apply orb_false_iff in Hend as [_ Hend]. cbn [app peek tail] in Hend.
        by rewrite He' in Hend.
      + injection Heq as -> _. by destruct Hx.
    - exfalso. destruct HX' as [|x sg k ks Hx%exponent_not_digit _ _ _]; [done|].
      injection Heq as <- _. by destruct Hx.
    - injection Heq as _ Heq. apply (span_unique is_digit_) in Heq as [_ Heq]; [done|done|done|..].
      + by apply exponent_head.
      + rewrite <- (app_nil_r X'). by apply exponent_head. }
  destruct (exponent_extended X u X' HX HX' HXu Hu) as [?|[-> Hs]]; [congruence|].
  apply orb_false_iff in Hend as [Hend _]. cbn [app] in HXu. subst X'.
  rewrite (exponent_starts u tl) in Hend by done. done.
Qed.

(** ** Numbers *)

Lemma decimal_int_lang sign d ds :
  sign_text sign → is_digit d = true → Forall (λ c, is_digit_ c = true) ds →
  lang literalInt (sign ++ d :: ds).
Proof.
  intros Hs Hd Hds. exists sign, (d :: ds). split_and!; [done|by apply opt_sign_text|].
  apply digits_text. eauto.
Qed.

Lemma decimal_float_lang sign d ds F X :
  sign_text sign → is_digit d = true → Forall (λ c, is_digit_ c = true) ds →
  fraction_text F → exponent_text X → lang literalFloat (sign ++ d :: ds ++ F ++ X).
Proof.
  intros Hs Hd Hds HF HX.
  assert (lang (seqs [opt (seqs [one_of "eE"; opt (one_of "+-"); number])]) X) as Htail.
  { apply seqs_cons. exists X, []. split_and!; [by rewrite app_nil_r| |done].
    destruct HX as [|e sg k ks He Hsg Hk Hks]; [by left|]. right.
    apply seqs_cons. exists [e], (sg ++ k :: ks).
    split_and!; [done|exists e; by rewrite <- exponent_class in He|].
    apply seqs_cons. exists sg, (k :: ks). split_and!; [done| |].
    - destruct (proj2 (opt_sign_text sg) Hsg) as [->|(c & -> & Hc)]; [by left|]. right.
      exists c. split; [done|]. revert Hc. unfold in_class, in_ranges. simpl. lia.
    - apply seqs_cons. exists (k :: ks), [].
      split_and!; [by rewrite app_nil_r|apply digits_text; eauto|done]. }
  apply seqs_cons. exists sign, (d :: ds ++ F ++ X). split_and!; [done|by apply opt_sign_text|].
  destruct HF as [|e es He Hes].
  - apply seqs_cons. exists [], (d :: ds ++ X). split_and!; [done|by left|].
    apply seqs_cons. exists [], (d :: ds ++ X). split_and!; [done|by left|].
    apply seqs_cons. exists (d :: ds), X. split_and!; [done|apply digits_text; eauto|done].
  - apply seqs_cons. exists (d :: ds), (c! "." :: e :: es ++ X).
    split_and!; [done|right; apply digits_text; eauto|].
    apply seqs_cons. exists (codes "."), (e :: es ++ X). split_and!; [done|right; by apply lit_lang|].
    apply seqs_cons. exists (e :: es), X. split_and!; [done|apply digits_text; eauto|done].
Qed.

(** A number with a fraction or an exponent is not an integer. *)
Lemma float_not_int sign d ds F X :
  sign_text sign → is_digit d = true → Forall (λ c, is_digit_ c = true) ds →
  fraction_text F → exponent_text X → F ++ X ≠ [] → ¬ lang literalInt (sign ++ d :: ds ++ F ++ X).
Proof.
  intros [Hs Hl] Hd Hds HF HX Hne (sign' & v & Heq & Hs'%opt_sign_text & Hv).
  apply digits_text in Hv as (d' & ds' & -> & Hd' & Hds').
  assert (ds ++ F ++ X = ds') as Hrest.
  { assert (∀ c, is_digit c = true → is_sign c = true → False) as Hno
      by (unfold is_digit, is_sign; lia). destruct Hs' as [Hs' Hl'].
    destruct Hs as [|c sign Hc Hs], Hs' as [|c' sign' Hc' Hs']; cbn [app] in Heq.
    - by injection Heq.
    - injection Heq as -> _. by destruct (Hno c').
    - injection Heq as -> _. by destruct (Hno d').
    - destruct sign, sign'; simpl in *; [|lia..]. by injection Heq. }
  subst ds'. apply Forall_app in Hds' as [_ Hds'].
  assert (is_digit_ (peek (F ++ X)) = false) as Hp.
  { apply fraction_head; [done|]. rewrite <- (app_nil_r X). by apply exponent_head. }
  destruct Hds' as [|c v Hc _]; [done|]. simpl in Hp. congruence.
Qed.

Lemma number_lang t w tl : number_form t w tl → lang (pattern t) w.
Proof.
  intros [sign d ds F X tl' Hs Hd Hds HF HX _|d ds tl' Hd Hds _|d ds tl' Hd Hds _].
  - destruct (F ++ X) as [|c v] eqn:HFX.
    + rewrite app_nil_r. by apply decimal_int_lang.
    + rewrite <- HFX. by apply decimal_float_lang.
  - apply seqs_cons. exists (codes "$"), (d :: ds). split_and!; [done|by apply lit_lang|].
    apply seqs_cons. exists [d], ds. split_and!; [done|exists d; by rewrite hex_class_first|].
    apply seqs_cons. exists ds, []. split_and!; [by rewrite app_nil_r| |done].
    by apply (star_class _ is_hex_); [intros; apply hex_class_|].
  - apply seqs_cons. exists (codes "%"), (d :: ds). split_and!; [done|by apply lit_lang|].
    apply seqs_cons. exists [d], ds. split_and!; [done|exists d; by rewrite <- bin_class_first in Hd|].
    apply seqs_cons. exists ds, []. split_and!; [by rewrite app_nil_r| |done].
    by apply (star_class _ is_bin_); [intros; apply bin_class_|].
Qed.

(** An integer is preferred to a float. *)
Lemma number_preferred t w tl h : number_form t w tl → h ∈ preferred t → ¬ lang (pattern h) w.
Proof.
  intros [sign d ds F X tl' Hs Hd Hds HF HX _|d ds tl' Hd Hds _|d ds tl' Hd Hds _] Hh;
    [|by apply not_elem_of_nil in Hh..].
  destruct (F ++ X) as [|c v] eqn:HFX; [by apply not_elem_of_nil in Hh|].
  apply list_elem_of_singleton in Hh as ->. rewrite <- HFX.
  apply float_not_int; [done..|]. by rewrite HFX.
Qed.

Lemma nonzero_class (p : Z → bool) w :
  p 0 = false → Forall (λ c, p c = true) w → Forall (λ c, c ≠ 0) w.
Proof. intros Hp Hw. eapply Forall_impl; [done|]. intros c Hc ->. cbn beta in Hc. congruence. Qed.

Lemma fraction_nonzero F : fraction_text F → Forall (λ c, c ≠ 0) F.
Proof.
  intros [|d ds Hd Hds]; [done|]. constructor; [done|].
  constructor; [by intros ->|by apply (nonzero_class is_digit_)].
Qed.

Lemma exponent_nonzero X : exponent_text X → Forall (λ c, c ≠ 0) X.
Proof.
  intros [|e sign d ds He [Hs _] Hd Hds]; [done|]. constructor; [by intros ->|].
  apply Forall_app_2; [by apply (nonzero_class is_sign)|].
  constructor; [by intros ->|by apply (nonzero_class is_digit_)].
Qed.

Lemma number_nonzero t w tl : number_form t w tl → Forall (λ c, c ≠ 0) w.
Proof.
  intros [sign d ds F X tl' [Hs _] Hd Hds HF HX _|d ds tl' Hd Hds _|d ds tl' Hd Hds _].
  - apply Forall_app_2; [by apply (nonzero_class is_sign)|]. constructor; [by intros ->|].
    apply Forall_app_2; [by apply (nonzero_class is_digit_)|].
    apply Forall_app_2; [by apply fraction_nonzero|by apply exponent_nonzero].
  - constructor; [done|]. constructor; [by intros ->|by apply (nonzero_class is_hex_)].
  - constructor; [done|]. constructor; [by intros ->|by apply (nonzero_class is_bin_)].
Qed.

(** Nothing longer than a number is a token. *)
Lemma number_longest t w tl t' u tl' :
  number_form t w tl → tl = u ++ tl' → u ≠ [] → Forall (λ c, c ≠ 0) (w ++ u) →
  ¬ lang (pattern t') (w ++ u).
Proof.
  intros Hf -> Hu Hw.
  inversion Hf as [sign d ds F X ? Hs Hd Hds HF HX He|d ds ? Hd Hds He|d ds ? Hd Hds He]; subst.
  - assert (lang number_start ((sign ++ d :: ds ++ F ++ X) ++ u)) as Hstart.
    { apply seqs_cons. exists sign, (d :: (ds ++ F ++ X) ++ u). rewrite <- (assoc_L (++)).
      split_and!; [done|by apply opt_sign_text|]. apply seqs_cons. exists [d], ((ds ++ F ++ X) ++ u).
      split_and!; [done|exists d; by rewrite digit_class|]. apply seqs_cons.
      exists ((ds ++ F ++ X) ++ u), []. by split_and!; [rewrite app_nil_r|apply any_text_lang|]. }
    destruct Hs as [Hs Hl]. destruct Hs as [|sc sign Hsc Hs]; [by eapply number_maximal|].
    destruct sign; simpl in Hl; [|lia]. cbn [app] in *.
    apply (number_maximal t' sc (d :: ds) F X u tl'); [done| |done..].
    constructor; [|done]. unfold is_digit_. by rewrite Hd.
  - apply (prefixed_maximal _ hex_class is_hex_ t' (d :: ds) u tl');
      [by repeat (apply elem_of_cons; first [by left|right])|apply hex_class_|done..].
  - apply (prefixed_maximal _ bin_class is_bin_ t' (d :: ds) u tl');
      [by repeat (apply elem_of_cons; first [by left|right])|apply bin_class_|done..].
Qed.

(** ** Strings *)

Lemma no_quote_class c : in_class true [(c! "'", c! "'")] c = true ↔ c ≠ c! "'".
Proof. unfold in_class, in_ranges. simpl. case_match; lia. Qed.

Lemma star_no_quote w : lang (Star (none_of "'")) w ↔ Forall (λ c, c ≠ c! "'") w.
Proof.
  change (none_of "'") with (Cls true [(c! "'", c! "'")]).
  rewrite star_cls_lang. split; intros Hw; (eapply Forall_impl; [done|]);
    intros c; apply no_quote_class.
Qed.

Lemma quoted_lang w :
  lang literalString w ↔ ∃ p, w = quoted p ∧ Forall (λ c, c ≠ c! "'") p.
Proof.
  split.
  - intros Hw. apply seqs_cons in Hw as (? & v & -> & ->%lit_lang & Hv).
    apply seqs_cons in Hv as (p & v' & -> & Hp%star_no_quote & Hv).
    apply seqs_cons in Hv as (? & e & -> & ->%lit_lang & He). simpl in He. subst e.
    exists p. by rewrite app_nil_r.
  - intros (p & -> & Hp). apply seqs_cons. exists (codes "'"), (p ++ codes "'").
    split_and!; [done|by apply lit_lang|]. apply seqs_cons. exists p, (codes "'").
    split_and!; [done|by apply star_no_quote|]. apply seqs_cons. exists (codes "'"), [].
    by split_and!; [|apply lit_lang|].
Qed.

(** Nothing longer than a quoted text is a token. *)
Lemma quoted_maximal p t u :
  Forall (λ c, c ≠ c! "'") p → u ≠ [] → Forall (λ c, c ≠ 0) (quoted p ++ u) →
  ¬ lang (pattern t) (quoted p ++ u).
Proof.
  intros Hp Hu Hw Ht.
  apply (pattern_shape t quote_shape) in Ht as [Ht|[Ht|Ht]];
    [..|by repeat (apply elem_of_cons; first [by left|right])|done].
  - apply quoted_lang in Ht as (p' & Heq & Hp'). unfold quoted in Heq.
    assert (p ++ c! "'" :: u = p' ++ [c! "'"]) as Heq'.
    { rewrite <- !(assoc_L (++)) in Heq. by injection Heq. }
    destruct (span_unique (λ c, negb (c =? c! "'")) p p' (c! "'" :: u) [c! "'"]) as [_ Hend];
      [..|done|done|done|]; [eapply Forall_impl; [done|]; simpl; lia..|].
    by injection Hend.
  - done.
  - destruct Ht as (a & v & Heq & (c & -> & Hc) & _). cbn in Heq. injection Heq as <- _.
    by compute in Hc.
Qed.

Lemma pieces_cons str : ∃ p ps, pieces str = p :: ps.
Proof. destruct str as [|c str]; simpl; [eauto|]. repeat case_match; eauto. Qed.

Lemma join_pieces_of str : join_pieces (pieces str) = str.
Proof.
  induction str as [|c str IH]; [done|]. cbn [pieces]. destruct (pieces_cons str) as (p & ps & Hp).
  rewrite Hp in *. destruct (Z.eqb_spec c (c! "'")) as [->|Hc].
  - change (c! "'" :: join_pieces (p :: ps) = c! "'" :: str). by rewrite IH.
  - assert (join_pieces ((c :: p) :: ps) = c :: join_pieces (p :: ps)) as -> by by destruct ps.
    by rewrite IH.
Qed.

Lemma pieces_no_quote str : Forall (Forall (λ c, c ≠ c! "'")) (pieces str).
Proof.
  induction str as [|c str IH]; [by repeat constructor|]. cbn [pieces].
  destruct (pieces_cons str) as (p & ps & Hp). rewrite Hp in *.
  destruct (Z.eqb_spec c (c! "'")) as [->|Hc]; [by constructor|].
  apply Forall_cons in IH as [? ?]. by repeat constructor.
Qed.

Lemma pieces_nonzero str :
  Forall (λ c, c ≠ 0) str → Forall (Forall (λ c, c ≠ 0)) (pieces str).
Proof.
  induction 1 as [|c str Hc _ IH]; [by repeat constructor|]. cbn [pieces].
  destruct (pieces_cons str) as (p & ps & Hp). rewrite Hp in *.
  destruct (c =? c! "'"); [by constructor|].
  apply Forall_cons in IH as [? ?]. by repeat constructor.
Qed.

(** The text of a literal is its pieces, each in quotes. *)
Lemma quote_pieces str : quote_string str = List.flat_map quoted (pieces str).
Proof.
  assert (∃ p ps, pieces str = p :: ps
    ∧ List.flat_map (λ c, if c =? c! "'" then codes "''" else [c]) str ++ [c! "'"]
      = p ++ c! "'" :: List.flat_map quoted ps) as (p & ps & Hp & Heq).
  { induction str as [|c str (p & ps & Hp & IH)]; [by exists [], []|]. cbn [pieces List.flat_map].
    rewrite Hp, <- (assoc_L (++)), IH. destruct (c =? c! "'").
    - exists [], (p :: ps). split; [done|]. cbn [List.flat_map]. unfold quoted. cbn.
      by rewrite <- (assoc_L (++)).
    - by exists (c :: p), ps. }
  unfold quote_string. rewrite Heq, Hp. cbn [List.flat_map]. unfold quoted at 2. cbn.
  by rewrite <- (assoc_L (++)).
Qed.

Section lexer.
Context `{TSLexerOk L}.

(** A token that nothing longer extends is what the lexer returns. *)
Lemma ts_lex_token fuel (l : L) s t w tl :
  s ∈ lex_states → rest l = w ++ tl → Forall (λ c, c ≠ 0) w → token_text s t w →
  (∀ t' u tl', tl = u ++ tl' → u ≠ [] → Forall (λ c, c ≠ 0) (w ++ u) →
     ¬ lang (pattern t') (w ++ u)) →
  (length (rest l) + 1 < fuel)%nat →
  ∃ l', ts_lex fuel l s = Ret (true, l')
    ∧ result_symbol l' = Z.of_nat (symbol_index t) ∧ token_end l' = tl.
Proof.
  intros Hs Hr Hw Ht Hmax Hf. pose proof (token_text_nonempty _ _ _ Ht) as Hne.
  destruct (ts_lex_verdict fuel l s Hs) as (b & l' & Hl & Hv); [|done|].
  { rewrite Hr. by destruct w. }
  destruct (proj1 (Hv t tl)) as (-> & Hsym & He); [|by exists l'].
  exists w. split_and!; [done..|]. intros w' tl' t' Heq Hw' Hlen (_ & Ht' & _).
  rewrite Hr in Heq. destruct (longer_prefix _ _ _ _ Heq Hlen) as (u & -> & Hu & Htl).
  by destruct (Hmax t' u tl').
Qed.

(** C35. Numbers: where the parser accepts a decimal integer, a floating-point
    number or a hexadecimal or binary integer, the whole number is one token of its
    kind, with its sign, its digit separators, its fraction and its exponent.  It
    ends before the first character that cannot go on with it: a decimal number
    ends before a full stop that no digit follows, as in a range, and before a
    word that is no exponent.  The exception are the places where label numbers
    are accepted too: there the number must not begin with a digit, since an
    unsigned number is a label number. *)
Theorem number_lexed fuel (l : L) s t w tl :
  s ∈ lex_states → t ∈ state_tokens s → number_form t w tl →
  (sym_labelNumber ∈ state_tokens s → is_digit (peek w) = false) →
  rest l = w ++ tl → (length (rest l) + 1 < fuel)%nat →
  ∃ l', ts_lex fuel l s = Ret (true, l')
    ∧ result_symbol l' = Z.of_nat (symbol_index t) ∧ token_end l' = tl.
Proof.
  intros Hs Ht Hform Hlab Hr Hf.
  apply (ts_lex_token fuel l s t w tl); [done|done|by eapply number_nonzero| | |done].
  - split_and!; [done|by eapply number_lang| |].
    + intros h Hh _. by eapply number_preferred.
    + intros Hl _ (u & v & -> & (c & -> & Hc) & _). specialize (Hlab Hl). simpl in Hlab.
      rewrite digit_class in Hc. congruence.
  - intros t' u tl' Htl Hu Hwu. by eapply number_longest.
Qed.

Lemma quoted_text s p :
  aux_sym__literalString_token1 ∈ state_tokens s → Forall (λ c, c ≠ c! "'") p →
  token_text s aux_sym__literalString_token1 (quoted p).
Proof.
  intros Ht Hp. split_and!; [done| | |].
  - apply quoted_lang. eauto.
  - by intros h ?%not_elem_of_nil.
  - by eapply no_digit_first.
Qed.

(** A lexer at the start of a text. *)
Context (lexer_at : list Z → L) (lexer_at_rest : ∀ cs, rest (lexer_at cs) = cs).

(** Reads string tokens as long as there are any, at most [n]: their texts, and
    what is left. *)
Fixpoint lex_strings (n : nat) (s : nat) (cs : list Z) : list (list Z) * list Z :=
  match n with
  | O => ([], cs)
  | S n =>
      match ts_lex (S (S (length cs))) (lexer_at cs) s with
      | Ret (true, l') =>
          if result_symbol l' =? Z.of_nat (symbol_index aux_sym__literalString_token1) then
            let (ws, tl) := lex_strings n s (token_end l') in
            (take (length cs - length (token_end l')) cs :: ws, tl)
          else ([], cs)
      | _ => ([], cs)
      end
  end.

(** No string token where no quote is next. *)
Lemma lex_strings_end n s tl : s ∈ lex_states → peek tl ≠ c! "'" → lex_strings n s tl = ([], tl).
Proof using lexer_at_rest.
  intros Hs Hp. destruct n as [|n]; [done|]. cbn [lex_strings].
  destruct (ts_lex (S (S (length tl))) (lexer_at tl) s) as [[[] l']| |] eqn:Hl; [|done..].
  assert (∀ t, result_symbol l' = Z.of_nat (symbol_index t) → t ≠ aux_sym__literalString_token1 →
    (result_symbol l' =? Z.of_nat (symbol_index aux_sym__literalString_token1)) = false) as Hother.
  { intros t Ht Hne. apply Z.eqb_neq. rewrite Ht. by intros ?%(inj Z.of_nat)%(inj symbol_index). }
  destruct (decide (tl = [])) as [->|Hne].
  - destruct (ts_lex_end_of_input 2 (lexer_at []) s Hs (lexer_at_rest []) ltac:(lia))
      as (b & l2 & Hl2 & _ & He). cbn [length] in Hl. rewrite Hl in Hl2. injection Hl2 as <- <-.
    destruct (He eq_refl) as [Ht _]. by rewrite (Hother _ Ht).
  - destruct (ts_lex_true (S (S (length tl))) (lexer_at tl) l' s Hs) as (t & Ht & Hlex);
      [by rewrite lexer_at_rest|rewrite lexer_at_rest; lia|done|].
    rewrite (Hother t Ht); [done|]. intros ->. rewrite lexer_at_rest in Hlex.
    destruct Hlex as (w & -> & _ & (_ & Hw & _) & _).
    apply quoted_lang in Hw as (p & -> & _). done.
Qed.

(** C36. String literals are read back: a string printed as a literal, with its
    quotes doubled, is read as the sequence of its pieces between the quotes, each
    a string token, and reading stops exactly at the end of the literal; the
    pieces stand for the string. *)
Theorem string_roundtrip n s str tl :
  s ∈ lex_states → aux_sym__literalString_token1 ∈ state_tokens s →
  Forall (λ c, c ≠ 0) str → peek tl ≠ c! "'" → (length (quote_string str) ≤ n)%nat →
  ∃ ps, lex_strings n s (quote_string str ++ tl) = (quoted <$> ps, tl) ∧ join_pieces ps = str.
Proof using lexer_at_rest.
  intros Hs Ht Hstr Htl Hn. exists (pieces str). split; [|apply join_pieces_of].
  rewrite quote_pieces in *. pose proof (pieces_no_quote str) as Hq.
  pose proof (pieces_nonzero str Hstr) as Hz. revert n Hn Hz. induction Hq as [|p ps Hp Hps IH].
  { intros n _ _. by apply lex_strings_end. }
  intros n Hn [Hzp Hz]%Forall_cons. cbn [List.flat_map fmap list_fmap] in *.
  rewrite <- (assoc_L (++)). set (rest_text := List.flat_map quoted ps ++ tl) in *.
  assert (0 < length (quoted p))%nat as Hlen by (unfold quoted; rewrite length_app; simpl; lia).
  rewrite length_app in Hn. destruct n as [|n]; [lia|]. cbn [lex_strings].
  destruct (ts_lex_token (S (S (length (quoted p ++ rest_text)))) (lexer_at (quoted p ++ rest_text)) s
    aux_sym__literalString_token1 (quoted p) rest_text) as (l' & -> & -> & ->).
  - done.
  - apply lexer_at_rest.
  - apply Forall_app_2; [concrete|]. apply Forall_app_2; [done|concrete].
  - by apply quoted_text.
  - intros t' u tl' _ Hu Hw. by apply quoted_maximal.
  - rewrite lexer_at_rest. lia.
  - rewrite Z.eqb_refl, (IH n) by (lia || done).
    rewrite length_app, Nat.add_sub. by rewrite take_app_length.
Qed.
End lexer.

(** ** Witnesses *)

(** The lower bound of a range. *)
Example range_bound_lexed :
  ∃ l', ts_lex 20 (str_lexer "-1_000..5") 2 = Ret (true, l')
    ∧ result_symbol l' = Z.of_nat (symbol_index aux_sym__literalInt_token1)
    ∧ token_end l' = codes "..5".
Proof. eexists. by vm_compute. Qed.

(** A number with a fraction and an exponent. *)
Lemma number_lexed_witness :
  ∃ l', ts_lex 20 (str_lexer "-1_0.5e+3;") 2 = Ret (true, l')
    ∧ result_symbol l' = Z.of_nat (symbol_index aux_sym__literalFloat_token1)
    ∧ token_end l' = codes ";".
Proof.
  refine (number_lexed 20 (str_lexer "-1_0.5e+3;") 2 aux_sym__literalFloat_token1
    (codes "-1_0.5e+3") (codes ";") _ _ _ _ _ _); [concrete|concrete| |concrete|concrete|concrete].
  apply (decimal_form (codes "-") (c! "1") (codes "_0") (codes ".5") (codes "e+3"));
    [by split; [concrete|simpl; lia]|done|concrete| | |done].
  - by apply (fraction (c! "5") []).
  - apply (exponent (c! "e") (codes "+") (c! "3") []); [done|by split; [concrete|simpl; lia]|done|done].
Defined.

Lemma string_roundtrip_witness :
  ∃ ps, lex_strings (λ cs, MkStrLexer cs [] 0) 10 2 (quote_string (codes "it's") ++ codes ";")
    = (quoted <$> ps, codes ";") ∧ join_pieces ps = codes "it's".
Proof.
  refine (string_roundtrip (λ cs, MkStrLexer cs [] 0) (λ cs, eq_refl) 10 2 (codes "it's")
    (codes ";") _ _ _ _ _); concrete.
Defined.
