(* ===== verification/External.v ===== *)
(** * The external-scanner tables of [parser.c]

    [ts_external_token] is the enumeration of the external tokens on the
    parser's side; [ts_external_scanner_symbol_map] gives each its grammar
    symbol and [ts_external_scanner_states] says, for each external lex
    state, which tokens the parser accepts.  A row is the list of its [true]
    elements; the rows are transcribed in blocks of consecutive states. *)

From S2P Require Import Prelude.
From S2P Require Import Symbols.
From S2P Require Import Tokens.

(** [enum ts_external_scanner_symbol_identifiers]. *)
Inductive ts_external_token : Set :=
  | ts_external_token_ppFragmentExpr | ts_external_token_ppFragmentStmt
  | ts_external_token__literalStringMultiline | ts_external_token_identifier
  | ts_external_token_kConstref | ts_external_token_kOut
  | ts_external_token_kAbsolute | ts_external_token_kRead
  | ts_external_token_kWrite | ts_external_token_kImplements
  | ts_external_token_kDefault | ts_external_token_kNodefault
  | ts_external_token_kStored | ts_external_token_kIndex
  | ts_external_token_kDispId | ts_external_token_kObjcclass
  | ts_external_token_kObjccategory | ts_external_token_kObjcprotocol
  | ts_external_token_kHelper | ts_external_token_kGeneric
  | ts_external_token_kSpecialize | ts_external_token_kOtherwise
  | ts_external_token_kRaiseAt | ts_external_token_kOn
  | ts_external_token_kOperator | ts_external_token_kReference
  | ts_external_token_kPublished | ts_external_token_kPublic
  | ts_external_token_kProtected | ts_external_token_kPrivate
  | ts_external_token_kStrict | ts_external_token_kRequired
  | ts_external_token_kOptional | ts_external_token_kForward
  | ts_external_token_kStatic | ts_external_token_kVirtual
  | ts_external_token_kAbstract | ts_external_token_kSealed
  | ts_external_token_kDynamic | ts_external_token_kOverride
  | ts_external_token_kOverload | ts_external_token_kReintroduce
  | ts_external_token_kStdcall | ts_external_token_kCdecl
  | ts_external_token_kCppdecl | ts_external_token_kPascal
  | ts_external_token_kRegister | ts_external_token_kMwpascal
  | ts_external_token_kExternal | ts_external_token_kName
  | ts_external_token_kMessage | ts_external_token_kDeprecated
  | ts_external_token_kExperimental | ts_external_token_kPlatform
  | ts_external_token_kUnimplemented | ts_external_token_kCvar
  | ts_external_token_kExport | ts_external_token_kFar
  | ts_external_token_kNear | ts_external_token_kSafecall
  | ts_external_token_kAssembler | ts_external_token_kNostackframe
  | ts_external_token_kInterrupt | ts_external_token_kNoreturn
  | ts_external_token_kIocheck | ts_external_token_kLocal
  | ts_external_token_kHardfloat | ts_external_token_kSoftfloat
  | ts_external_token_kMs_abi_default | ts_external_token_kMs_abi_cdecl
  | ts_external_token_kSaveregisters | ts_external_token_kSysv_abi_default
  | ts_external_token_kSysv_abi_cdecl | ts_external_token_kVectorcall
  | ts_external_token_kVarargs | ts_external_token_kWinapi
  | ts_external_token_kAlias | ts_external_token_kDelayed
  | ts_external_token_kTrue | ts_external_token_kFalse
  | ts_external_token_kAnd | ts_external_token_kArray | ts_external_token_kAs
  | ts_external_token_kAsm | ts_external_token_kBegin
  | ts_external_token_kCase | ts_external_token_kClass
  | ts_external_token_kConst | ts_external_token_kConstructor
  | ts_external_token_kDestructor | ts_external_token_kDispInterface
  | ts_external_token_kDiv | ts_external_token_kDo | ts_external_token_kDownto
  | ts_external_token_kElse | ts_external_token_kEnd
  | ts_external_token_kExcept | ts_external_token_kExports
  | ts_external_token_kFile | ts_external_token_kFinalization
  | ts_external_token_kFinally | ts_external_token_kFor
  | ts_external_token_kFunction | ts_external_token_kGoto
  | ts_external_token_kIf | ts_external_token_kImplementation
  | ts_external_token_kIn | ts_external_token_kInherited
  | ts_external_token_kInitialization | ts_external_token_kInline
  | ts_external_token_kInterface | ts_external_token_kIs
  | ts_external_token_kLabel | ts_external_token_kLibrary
  | ts_external_token_kMod | ts_external_token_kNil | ts_external_token_kNot
  | ts_external_token_kObject | ts_external_token_kOf | ts_external_token_kOr
  | ts_external_token_kPacked | ts_external_token_kProcedure
  | ts_external_token_kProgram | ts_external_token_kProperty
  | ts_external_token_kRaise | ts_external_token_kRecord
  | ts_external_token_kRepeat | ts_external_token_kResourcestring
  | ts_external_token_kSet | ts_external_token_kShl | ts_external_token_kShr
  | ts_external_token_kString | ts_external_token_kThen
  | ts_external_token_kThreadvar | ts_external_token_kTo
  | ts_external_token_kTry | ts_external_token_kType | ts_external_token_kUnit
  | ts_external_token_kUntil | ts_external_token_kUses
  | ts_external_token_kVar | ts_external_token_kWhile
  | ts_external_token_kWith | ts_external_token_kXor.

(** The value of an enumerator. *)
Definition external_index (e : ts_external_token) : nat :=
  match e with
  | ts_external_token_ppFragmentExpr => 0
  | ts_external_token_ppFragmentStmt => 1
  | ts_external_token__literalStringMultiline => 2
  | ts_external_token_identifier => 3 | ts_external_token_kConstref => 4
  | ts_external_token_kOut => 5 | ts_external_token_kAbsolute => 6
  | ts_external_token_kRead => 7 | ts_external_token_kWrite => 8
  | ts_external_token_kImplements => 9 | ts_external_token_kDefault => 10
  | ts_external_token_kNodefault => 11 | ts_external_token_kStored => 12
  | ts_external_token_kIndex => 13 | ts_external_token_kDispId => 14
  | ts_external_token_kObjcclass => 15 | ts_external_token_kObjccategory => 16
  | ts_external_token_kObjcprotocol => 17 | ts_external_token_kHelper => 18
  | ts_external_token_kGeneric => 19 | ts_external_token_kSpecialize => 20
  | ts_external_token_kOtherwise => 21 | ts_external_token_kRaiseAt => 22
  | ts_external_token_kOn => 23 | ts_external_token_kOperator => 24
  | ts_external_token_kReference => 25 | ts_external_token_kPublished => 26
  | ts_external_token_kPublic => 27 | ts_external_token_kProtected => 28
  | ts_external_token_kPrivate => 29 | ts_external_token_kStrict => 30
  | ts_external_token_kRequired => 31 | ts_external_token_kOptional => 32
  | ts_external_token_kForward => 33 | ts_external_token_kStatic => 34
  | ts_external_token_kVirtual => 35 | ts_external_token_kAbstract => 36
  | ts_external_token_kSealed => 37 | ts_external_token_kDynamic => 38
  | ts_external_token_kOverride => 39 | ts_external_token_kOverload => 40
  | ts_external_token_kReintroduce => 41 | ts_external_token_kStdcall => 42
  | ts_external_token_kCdecl => 43 | ts_external_token_kCppdecl => 44
  | ts_external_token_kPascal => 45 | ts_external_token_kRegister => 46
  | ts_external_token_kMwpascal => 47 | ts_external_token_kExternal => 48
  | ts_external_token_kName => 49 | ts_external_token_kMessage => 50
  | ts_external_token_kDeprecated => 51
  | ts_external_token_kExperimental => 52 | ts_external_token_kPlatform => 53
  | ts_external_token_kUnimplemented => 54 | ts_external_token_kCvar => 55
  | ts_external_token_kExport => 56 | ts_external_token_kFar => 57
  | ts_external_token_kNear => 58 | ts_external_token_kSafecall => 59
  | ts_external_token_kAssembler => 60 | ts_external_token_kNostackframe => 61
  | ts_external_token_kInterrupt => 62 | ts_external_token_kNoreturn => 63
  | ts_external_token_kIocheck => 64 | ts_external_token_kLocal => 65
  | ts_external_token_kHardfloat => 66 | ts_external_token_kSoftfloat => 67
  | ts_external_token_kMs_abi_default => 68
  | ts_external_token_kMs_abi_cdecl => 69
  | ts_external_token_kSaveregisters => 70
  | ts_external_token_kSysv_abi_default => 71
  | ts_external_token_kSysv_abi_cdecl => 72
  | ts_external_token_kVectorcall => 73 | ts_external_token_kVarargs => 74
  | ts_external_token_kWinapi => 75 | ts_external_token_kAlias => 76
  | ts_external_token_kDelayed => 77 | ts_external_token_kTrue => 78
  | ts_external_token_kFalse => 79 | ts_external_token_kAnd => 80
  | ts_external_token_kArray => 81 | ts_external_token_kAs => 82
  | ts_external_token_kAsm => 83 | ts_external_token_kBegin => 84
  | ts_external_token_kCase => 85 | ts_external_token_kClass => 86
  | ts_external_token_kConst => 87 | ts_external_token_kConstructor => 88
  | ts_external_token_kDestructor => 89
  | ts_external_token_kDispInterface => 90 | ts_external_token_kDiv => 91
  | ts_external_token_kDo => 92 | ts_external_token_kDownto => 93
  | ts_external_token_kElse => 94 | ts_external_token_kEnd => 95
  | ts_external_token_kExcept => 96 | ts_external_token_kExports => 97
  | ts_external_token_kFile => 98 | ts_external_token_kFinalization => 99
  | ts_external_token_kFinally => 100 | ts_external_token_kFor => 101
  | ts_external_token_kFunction => 102 | ts_external_token_kGoto => 103
  | ts_external_token_kIf => 104 | ts_external_token_kImplementation => 105
  | ts_external_token_kIn => 106 | ts_external_token_kInherited => 107
  | ts_external_token_kInitialization => 108
  | ts_external_token_kInline => 109 | ts_external_token_kInterface => 110
  | ts_external_token_kIs => 111 | ts_external_token_kLabel => 112
  | ts_external_token_kLibrary => 113 | ts_external_token_kMod => 114
  | ts_external_token_kNil => 115 | ts_external_token_kNot => 116
  | ts_external_token_kObject => 117 | ts_external_token_kOf => 118
  | ts_external_token_kOr => 119 | ts_external_token_kPacked => 120
  | ts_external_token_kProcedure => 121 | ts_external_token_kProgram => 122
  | ts_external_token_kProperty => 123 | ts_external_token_kRaise => 124
  | ts_external_token_kRecord => 125 | ts_external_token_kRepeat => 126
  | ts_external_token_kResourcestring => 127 | ts_external_token_kSet => 128
  | ts_external_token_kShl => 129 | ts_external_token_kShr => 130
  | ts_external_token_kString => 131 | ts_external_token_kThen => 132
  | ts_external_token_kThreadvar => 133 | ts_external_token_kTo => 134
  | ts_external_token_kTry => 135 | ts_external_token_kType => 136
  | ts_external_token_kUnit => 137 | ts_external_token_kUntil => 138
  | ts_external_token_kUses => 139 | ts_external_token_kVar => 140
  | ts_external_token_kWhile => 141 | ts_external_token_kWith => 142
  | ts_external_token_kXor => 143
  end.

(** The grammar symbol of each external token. *)
Definition ts_external_scanner_symbol_map : list (ts_external_token * ts_symbol) :=
  [
   (ts_external_token_ppFragmentExpr, sym_ppFragmentExpr);
   (ts_external_token_ppFragmentStmt, sym_ppFragmentStmt);
   (ts_external_token__literalStringMultiline, sym__literalStringMultiline);
   (ts_external_token_identifier, sym_identifier);
   (ts_external_token_kConstref, sym_kConstref);
   (ts_external_token_kOut, sym_kOut);
   (ts_external_token_kAbsolute, sym_kAbsolute);
   (ts_external_token_kRead, sym_kRead);
   (ts_external_token_kWrite, sym_kWrite);
   (ts_external_token_kImplements, sym_kImplements);
   (ts_external_token_kDefault, sym_kDefault);
   (ts_external_token_kNodefault, sym_kNodefault);
   (ts_external_token_kStored, sym_kStored);
   (ts_external_token_kIndex, sym_kIndex);
   (ts_external_token_kDispId, sym_kDispId);
   (ts_external_token_kObjcclass, sym_kObjcclass);
   (ts_external_token_kObjccategory, sym_kObjccategory);
   (ts_external_token_kObjcprotocol, sym_kObjcprotocol);
   (ts_external_token_kHelper, sym_kHelper);
   (ts_external_token_kGeneric, sym_kGeneric);
   (ts_external_token_kSpecialize, sym_kSpecialize);
   (ts_external_token_kOtherwise, sym_kOtherwise);
   (ts_external_token_kRaiseAt, sym_kRaiseAt);
   (ts_external_token_kOn, sym_kOn);
   (ts_external_token_kOperator, sym_kOperator);
   (ts_external_token_kReference, sym_kReference);
   (ts_external_token_kPublished, sym_kPublished);
   (ts_external_token_kPublic, sym_kPublic);
   (ts_external_token_kProtected, sym_kProtected);
   (ts_external_token_kPrivate, sym_kPrivate);
   (ts_external_token_kStrict, sym_kStrict);
   (ts_external_token_kRequired, sym_kRequired);
   (ts_external_token_kOptional, sym_kOptional);
   (ts_external_token_kForward, sym_kForward);
   (ts_external_token_kStatic, sym_kStatic);
   (ts_external_token_kVirtual, sym_kVirtual);
   (ts_external_token_kAbstract, sym_kAbstract);
   (ts_external_token_kSealed, sym_kSealed);
   (ts_external_token_kDynamic, sym_kDynamic);
   (ts_external_token_kOverride, sym_kOverride);
   (ts_external_token_kOverload, sym_kOverload);
   (ts_external_token_kReintroduce, sym_kReintroduce);
   (ts_external_token_kStdcall, sym_kStdcall);
   (ts_external_token_kCdecl, sym_kCdecl);
   (ts_external_token_kCppdecl, sym_kCppdecl);
   (ts_external_token_kPascal, sym_kPascal);
   (ts_external_token_kRegister, sym_kRegister);
   (ts_external_token_kMwpascal, sym_kMwpascal);
   (ts_external_token_kExternal, sym_kExternal);
   (ts_external_token_kName, sym_kName);
   (ts_external_token_kMessage, sym_kMessage);
   (ts_external_token_kDeprecated, sym_kDeprecated);
   (ts_external_token_kExperimental, sym_kExperimental);
   (ts_external_token_kPlatform, sym_kPlatform);
   (ts_external_token_kUnimplemented, sym_kUnimplemented);
   (ts_external_token_kCvar, sym_kCvar);
   (ts_external_token_kExport, sym_kExport);
   (ts_external_token_kFar, sym_kFar); (ts_external_token_kNear, sym_kNear);
   (ts_external_token_kSafecall, sym_kSafecall);
   (ts_external_token_kAssembler, sym_kAssembler);
   (ts_external_token_kNostackframe, sym_kNostackframe);
   (ts_external_token_kInterrupt, sym_kInterrupt);
   (ts_external_token_kNoreturn, sym_kNoreturn);
   (ts_external_token_kIocheck, sym_kIocheck);
   (ts_external_token_kLocal, sym_kLocal);
   (ts_external_token_kHardfloat, sym_kHardfloat);
   (ts_external_token_kSoftfloat, sym_kSoftfloat);
   (ts_external_token_kMs_abi_default, sym_kMs_abi_default);
   (ts_external_token_kMs_abi_cdecl, sym_kMs_abi_cdecl);
   (ts_external_token_kSaveregisters, sym_kSaveregisters);
   (ts_external_token_kSysv_abi_default, sym_kSysv_abi_default);
   (ts_external_token_kSysv_abi_cdecl, sym_kSysv_abi_cdecl);
   (ts_external_token_kVectorcall, sym_kVectorcall);
   (ts_external_token_kVarargs, sym_kVarargs);
   (ts_external_token_kWinapi, sym_kWinapi);
   (ts_external_token_kAlias, sym_kAlias);
   (ts_external_token_kDelayed, sym_kDelayed);
   (ts_external_token_kTrue, sym_kTrue);
   (ts_external_token_kFalse, sym_kFalse); (ts_external_token_kAnd, sym_kAnd);
   (ts_external_token_kArray, sym_kArray); (ts_external_token_kAs, sym_kAs);
   (ts_external_token_kAsm, sym_kAsm); (ts_external_token_kBegin, sym_kBegin);
   (ts_external_token_kCase, sym_kCase);
   (ts_external_token_kClass, sym_kClass);
   (ts_external_token_kConst, sym_kConst);
   (ts_external_token_kConstructor, sym_kConstructor);
   (ts_external_token_kDestructor, sym_kDestructor);
   (ts_external_token_kDispInterface, sym_kDispInterface);
   (ts_external_token_kDiv, sym_kDiv); (ts_external_token_kDo, sym_kDo);
   (ts_external_token_kDownto, sym_kDownto);
   (ts_external_token_kElse, sym_kElse); (ts_external_token_kEnd, sym_kEnd);
   (ts_external_token_kExcept, sym_kExcept);
   (ts_external_token_kExports, sym_kExports);
   (ts_external_token_kFile, sym_kFile);
   (ts_external_token_kFinalization, sym_kFinalization);
   (ts_external_token_kFinally, sym_kFinally);
   (ts_external_token_kFor, sym_kFor);
   (ts_external_token_kFunction, sym_kFunction);
   (ts_external_token_kGoto, sym_kGoto); (ts_external_token_kIf, sym_kIf);
   (ts_external_token_kImplementation, sym_kImplementation);
   (ts_external_token_kIn, sym_kIn);
   (ts_external_token_kInherited, sym_kInherited);
   (ts_external_token_kInitialization, sym_kInitialization);
   (ts_external_token_kInline, sym_kInline);
   (ts_external_token_kInterface, sym_kInterface);
   (ts_external_token_kIs, sym_kIs); (ts_external_token_kLabel, sym_kLabel);
   (ts_external_token_kLibrary, sym_kLibrary);
   (ts_external_token_kMod, sym_kMod); (ts_external_token_kNil, sym_kNil);
   (ts_external_token_kNot, sym_kNot);
   (ts_external_token_kObject, sym_kObject); (ts_external_token_kOf, sym_kOf);
   (ts_external_token_kOr, sym_kOr); (ts_external_token_kPacked, sym_kPacked);
   (ts_external_token_kProcedure, sym_kProcedure);
   (ts_external_token_kProgram, sym_kProgram);
   (ts_external_token_kProperty, sym_kProperty);
   (ts_external_token_kRaise, sym_kRaise);
   (ts_external_token_kRecord, sym_kRecord);
   (ts_external_token_kRepeat, sym_kRepeat);
   (ts_external_token_kResourcestring, sym_kResourcestring);
   (ts_external_token_kSet, sym_kSet); (ts_external_token_kShl, sym_kShl);
   (ts_external_token_kShr, sym_kShr);
   (ts_external_token_kString, sym_kString);
   (ts_external_token_kThen, sym_kThen);
   (ts_external_token_kThreadvar, sym_kThreadvar);
   (ts_external_token_kTo, sym_kTo); (ts_external_token_kTry, sym_kTry);
   (ts_external_token_kType, sym_kType); (ts_external_token_kUnit, sym_kUnit);
   (ts_external_token_kUntil, sym_kUntil);
   (ts_external_token_kUses, sym_kUses); (ts_external_token_kVar, sym_kVar);
   (ts_external_token_kWhile, sym_kWhile);
   (ts_external_token_kWith, sym_kWith); (ts_external_token_kXor, sym_kXor)
  ].

(** ** The acceptable tokens of each external lex state *)

(** State 0 has no initializer: nothing is accepted. *)
Definition ts_external_scanner_states_0 : list (list ts_external_token) := [ [] ].

(** States 1 to 1. *)
Definition ts_external_scanner_states_1 : list (list ts_external_token) :=
  [
   [ts_external_token_ppFragmentExpr; ts_external_token_ppFragmentStmt;
    ts_external_token__literalStringMultiline; ts_external_token_identifier;
    ts_external_token_kConstref; ts_external_token_kOut;
    ts_external_token_kAbsolute; ts_external_token_kRead;
    ts_external_token_kWrite; ts_external_token_kImplements;
    ts_external_token_kDefault; ts_external_token_kNodefault;
    ts_external_token_kStored; ts_external_token_kIndex;
    ts_external_token_kDispId; ts_external_token_kObjcclass;
    ts_external_token_kObjccategory; ts_external_token_kObjcprotocol;
    ts_external_token_kHelper; ts_external_token_kGeneric;
    ts_external_token_kSpecialize; ts_external_token_kOtherwise;
    ts_external_token_kRaiseAt; ts_external_token_kOn;
    ts_external_token_kOperator; ts_external_token_kReference;
    ts_external_token_kPublished; ts_external_token_kPublic;
    ts_external_token_kProtected; ts_external_token_kPrivate;
    ts_external_token_kStrict; ts_external_token_kRequired;
    ts_external_token_kOptional; ts_external_token_kForward;
    ts_external_token_kStatic; ts_external_token_kVirtual;
    ts_external_token_kAbstract; ts_external_token_kSealed;
    ts_external_token_kDynamic; ts_external_token_kOverride;
    ts_external_token_kOverload; ts_external_token_kReintroduce;
    ts_external_token_kStdcall; ts_external_token_kCdecl;
    ts_external_token_kCppdecl; ts_external_token_kPascal;
    ts_external_token_kRegister; ts_external_token_kMwpascal;
    ts_external_token_kExternal; ts_external_token_kName;
    ts_external_token_kMessage; ts_external_token_kDeprecated;
    ts_external_token_kExperimental; ts_external_token_kPlatform;
    ts_external_token_kUnimplemented; ts_external_token_kCvar;
    ts_external_token_kExport; ts_external_token_kFar;
    ts_external_token_kNear; ts_external_token_kSafecall;
    ts_external_token_kAssembler; ts_external_token_kNostackframe;
    ts_external_token_kInterrupt; ts_external_token_kNoreturn;
    ts_external_token_kIocheck; ts_external_token_kLocal;
    ts_external_token_kHardfloat; ts_external_token_kSoftfloat;
    ts_external_token_kMs_abi_default; ts_external_token_kMs_abi_cdecl;
    ts_external_token_kSaveregisters; ts_external_token_kSysv_abi_default;
    ts_external_token_kSysv_abi_cdecl; ts_external_token_kVectorcall;
    ts_external_token_kVarargs; ts_external_token_kWinapi;
    ts_external_token_kAlias; ts_external_token_kDelayed;
    ts_external_token_kTrue; ts_external_token_kAnd; ts_external_token_kArray;
    ts_external_token_kAs; ts_external_token_kAsm; ts_external_token_kBegin;
    ts_external_token_kCase; ts_external_token_kClass;
    ts_external_token_kConst; ts_external_token_kConstructor;
    ts_external_token_kDestructor; ts_external_token_kDispInterface;
    ts_external_token_kDiv; ts_external_token_kDo; ts_external_token_kDownto;
    ts_external_token_kElse; ts_external_token_kEnd;
    ts_external_token_kExcept; ts_external_token_kExports;
    ts_external_token_kFile; ts_external_token_kFinalization;
    ts_external_token_kFinally; ts_external_token_kFor;
    ts_external_token_kFunction; ts_external_token_kGoto;
    ts_external_token_kIf; ts_external_token_kImplementation;
    ts_external_token_kIn; ts_external_token_kInherited;
    ts_external_token_kInitialization; ts_external_token_kInline;
    ts_external_token_kInterface; ts_external_token_kIs;
    ts_external_token_kLabel; ts_external_token_kLibrary;
    ts_external_token_kMod; ts_external_token_kNil; ts_external_token_kNot;
    ts_external_token_kObject; ts_external_token_kOf; ts_external_token_kOr;
    ts_external_token_kPacked; ts_external_token_kProcedure;
    ts_external_token_kProgram; ts_external_token_kProperty;
    ts_external_token_kRaise; ts_external_token_kRecord;
    ts_external_token_kRepeat; ts_external_token_kResourcestring;
    ts_external_token_kSet; ts_external_token_kShl; ts_external_token_kShr;
    ts_external_token_kString; ts_external_token_kThen;
    ts_external_token_kThreadvar; ts_external_token_kTo;
    ts_external_token_kTry; ts_external_token_kType; ts_external_token_kUnit;
    ts_external_token_kUntil; ts_external_token_kUses; ts_external_token_kVar;
    ts_external_token_kWhile; ts_external_token_kWith; ts_external_token_kXor]
  ].

(** States 2 to 3. *)
Definition ts_external_scanner_states_2 : list (list ts_external_token) :=
  [
   [ts_external_token_kGeneric; ts_external_token_kOperator;
    ts_external_token_kBegin; ts_external_token_kClass;
    ts_external_token_kConst; ts_external_token_kConstructor;
    ts_external_token_kDestructor; ts_external_token_kExports;
    ts_external_token_kFunction; ts_external_token_kLabel;
    ts_external_token_kLibrary; ts_external_token_kProcedure;
    ts_external_token_kProgram; ts_external_token_kResourcestring;
    ts_external_token_kThreadvar; ts_external_token_kType;
    ts_external_token_kUnit; ts_external_token_kUses; ts_external_token_kVar];
   [ts_external_token_ppFragmentExpr;
    ts_external_token__literalStringMultiline; ts_external_token_identifier;
    ts_external_token_kDefault; ts_external_token_kNodefault;
    ts_external_token_kDispId; ts_external_token_kGeneric;
    ts_external_token_kSpecialize; ts_external_token_kOperator;
    ts_external_token_kPublished; ts_external_token_kPublic;
    ts_external_token_kProtected; ts_external_token_kPrivate;
    ts_external_token_kStrict; ts_external_token_kRequired;
    ts_external_token_kOptional; ts_external_token_kStatic;
    ts_external_token_kVirtual; ts_external_token_kAbstract;
    ts_external_token_kDynamic; ts_external_token_kOverride;
    ts_external_token_kOverload; ts_external_token_kReintroduce;
    ts_external_token_kStdcall; ts_external_token_kCdecl;
    ts_external_token_kCppdecl; ts_external_token_kPascal;
    ts_external_token_kRegister; ts_external_token_kMwpascal;
    ts_external_token_kMessage; ts_external_token_kDeprecated;
    ts_external_token_kExperimental; ts_external_token_kPlatform;
    ts_external_token_kUnimplemented; ts_external_token_kCvar;
    ts_external_token_kExport; ts_external_token_kFar;
    ts_external_token_kNear; ts_external_token_kSafecall;
    ts_external_token_kAssembler; ts_external_token_kNostackframe;
    ts_external_token_kInterrupt; ts_external_token_kNoreturn;
    ts_external_token_kIocheck; ts_external_token_kLocal;
    ts_external_token_kHardfloat; ts_external_token_kSoftfloat;
    ts_external_token_kMs_abi_default; ts_external_token_kMs_abi_cdecl;
    ts_external_token_kSaveregisters; ts_external_token_kSysv_abi_default;
    ts_external_token_kSysv_abi_cdecl; ts_external_token_kVectorcall;
    ts_external_token_kVarargs; ts_external_token_kWinapi;
    ts_external_token_kAlias; ts_external_token_kTrue;
    ts_external_token_kFalse; ts_external_token_kAsm;
    ts_external_token_kBegin; ts_external_token_kCase;
    ts_external_token_kClass; ts_external_token_kConst;
    ts_external_token_kConstructor; ts_external_token_kDestructor;
    ts_external_token_kExports; ts_external_token_kFor;
    ts_external_token_kFunction; ts_external_token_kGoto;
    ts_external_token_kIf; ts_external_token_kInherited;
    ts_external_token_kLabel; ts_external_token_kNil; ts_external_token_kNot;
    ts_external_token_kProcedure; ts_external_token_kProperty;
    ts_external_token_kRaise; ts_external_token_kRepeat;
    ts_external_token_kResourcestring; ts_external_token_kString;
    ts_external_token_kThreadvar; ts_external_token_kTry;
    ts_external_token_kType; ts_external_token_kUses; ts_external_token_kVar;
    ts_external_token_kWhile; ts_external_token_kWith]
  ].

(** States 4 to 6. *)
Definition ts_external_scanner_states_4 : list (list ts_external_token) :=
  [
   [ts_external_token_ppFragmentExpr;
    ts_external_token__literalStringMultiline; ts_external_token_identifier;
    ts_external_token_kDefault; ts_external_token_kNodefault;
    ts_external_token_kDispId; ts_external_token_kGeneric;
    ts_external_token_kSpecialize; ts_external_token_kOperator;
    ts_external_token_kPublic; ts_external_token_kStatic;
    ts_external_token_kVirtual; ts_external_token_kAbstract;
    ts_external_token_kDynamic; ts_external_token_kOverride;
    ts_external_token_kOverload; ts_external_token_kReintroduce;
    ts_external_token_kStdcall; ts_external_token_kCdecl;
    ts_external_token_kCppdecl; ts_external_token_kPascal;
    ts_external_token_kRegister; ts_external_token_kMwpascal;
    ts_external_token_kMessage; ts_external_token_kDeprecated;
    ts_external_token_kExperimental; ts_external_token_kPlatform;
    ts_external_token_kUnimplemented; ts_external_token_kCvar;
    ts_external_token_kExport; ts_external_token_kFar;
    ts_external_token_kNear; ts_external_token_kSafecall;
    ts_external_token_kAssembler; ts_external_token_kNostackframe;
    ts_external_token_kInterrupt; ts_external_token_kNoreturn;
    ts_external_token_kIocheck; ts_external_token_kLocal;
    ts_external_token_kHardfloat; ts_external_token_kSoftfloat;
    ts_external_token_kMs_abi_default; ts_external_token_kMs_abi_cdecl;
    ts_external_token_kSaveregisters; ts_external_token_kSysv_abi_default;
    ts_external_token_kSysv_abi_cdecl; ts_external_token_kVectorcall;
    ts_external_token_kVarargs; ts_external_token_kWinapi;
    ts_external_token_kAlias; ts_external_token_kTrue;
    ts_external_token_kFalse; ts_external_token_kAsm;
    ts_external_token_kBegin; ts_external_token_kCase;
    ts_external_token_kClass; ts_external_token_kConst;
    ts_external_token_kConstructor; ts_external_token_kDestructor;
    ts_external_token_kExports; ts_external_token_kFor;
    ts_external_token_kFunction; ts_external_token_kGoto;
    ts_external_token_kIf; ts_external_token_kInherited;
    ts_external_token_kLabel; ts_external_token_kNil; ts_external_token_kNot;
    ts_external_token_kProcedure; ts_external_token_kProperty;
    ts_external_token_kRaise; ts_external_token_kRepeat;
    ts_external_token_kResourcestring; ts_external_token_kString;
    ts_external_token_kThreadvar; ts_external_token_kTry;
    ts_external_token_kType; ts_external_token_kUses; ts_external_token_kVar;
    ts_external_token_kWhile; ts_external_token_kWith];
   [ts_external_token_ppFragmentExpr; ts_external_token_ppFragmentStmt;
    ts_external_token__literalStringMultiline; ts_external_token_identifier;
    ts_external_token_kSpecialize; ts_external_token_kOn;
    ts_external_token_kTrue; ts_external_token_kFalse; ts_external_token_kAsm;
    ts_external_token_kBegin; ts_external_token_kCase;
    ts_external_token_kConst; ts_external_token_kEnd; ts_external_token_kFor;
    ts_external_token_kFunction; ts_external_token_kGoto;
    ts_external_token_kIf; ts_external_token_kInherited;
    ts_external_token_kNil; ts_external_token_kNot;
    ts_external_token_kProcedure; ts_external_token_kRaise;
    ts_external_token_kRepeat; ts_external_token_kString;
    ts_external_token_kTry; ts_external_token_kVar; ts_external_token_kWhile;
    ts_external_token_kWith];
   [ts_external_token_ppFragmentExpr; ts_external_token_ppFragmentStmt;
    ts_external_token__literalStringMultiline; ts_external_token_identifier;
    ts_external_token_kSpecialize; ts_external_token_kTrue;
    ts_external_token_kFalse; ts_external_token_kAsm;
    ts_external_token_kBegin; ts_external_token_kCase;
    ts_external_token_kConst; ts_external_token_kEnd;
    ts_external_token_kFinalization; ts_external_token_kFor;
    ts_external_token_kFunction; ts_external_token_kGoto;
    ts_external_token_kIf; ts_external_token_kImplementation;
    ts_external_token_kInherited; ts_external_token_kInitialization;
    ts_external_token_kInterface; ts_external_token_kNil;
    ts_external_token_kNot; ts_external_token_kProcedure;
    ts_external_token_kRaise; ts_external_token_kRepeat;
    ts_external_token_kString; ts_external_token_kTry; ts_external_token_kVar;
    ts_external_token_kWhile; ts_external_token_kWith]
  ].

(** States 7 to 9. *)
Definition ts_external_scanner_states_7 : list (list ts_external_token) :=
  [
   [ts_external_token_ppFragmentExpr; ts_external_token_ppFragmentStmt;
    ts_external_token__literalStringMultiline; ts_external_token_identifier;
    ts_external_token_kSpecialize; ts_external_token_kTrue;
    ts_external_token_kFalse; ts_external_token_kAsm;
    ts_external_token_kBegin; ts_external_token_kCase;
    ts_external_token_kConst; ts_external_token_kExcept;
    ts_external_token_kFinally; ts_external_token_kFor;
    ts_external_token_kFunction; ts_external_token_kGoto;
    ts_external_token_kIf; ts_external_token_kInherited;
    ts_external_token_kNil; ts_external_token_kNot;
    ts_external_token_kProcedure; ts_external_token_kRaise;
    ts_external_token_kRepeat; ts_external_token_kString;
    ts_external_token_kTry; ts_external_token_kVar; ts_external_token_kWhile;
    ts_external_token_kWith];
   [ts_external_token_ppFragmentExpr; ts_external_token_ppFragmentStmt;
    ts_external_token__literalStringMultiline; ts_external_token_identifier;
    ts_external_token_kSpecialize; ts_external_token_kTrue;
    ts_external_token_kFalse; ts_external_token_kAsm;
    ts_external_token_kBegin; ts_external_token_kCase;
    ts_external_token_kConst; ts_external_token_kFor;
    ts_external_token_kFunction; ts_external_token_kGoto;
    ts_external_token_kIf; ts_external_token_kInherited;
    ts_external_token_kNil; ts_external_token_kNot;
    ts_external_token_kProcedure; ts_external_token_kRaise;
    ts_external_token_kRepeat; ts_external_token_kString;
    ts_external_token_kTry; ts_external_token_kUntil; ts_external_token_kVar;
    ts_external_token_kWhile; ts_external_token_kWith];
   [ts_external_token_ppFragmentExpr;
    ts_external_token__literalStringMultiline; ts_external_token_identifier;
    ts_external_token_kDefault; ts_external_token_kNodefault;
    ts_external_token_kDispId; ts_external_token_kGeneric;
    ts_external_token_kSpecialize; ts_external_token_kOperator;
    ts_external_token_kPublic; ts_external_token_kForward;
    ts_external_token_kStatic; ts_external_token_kVirtual;
    ts_external_token_kAbstract; ts_external_token_kDynamic;
    ts_external_token_kOverride; ts_external_token_kOverload;
    ts_external_token_kReintroduce; ts_external_token_kStdcall;
    ts_external_token_kCdecl; ts_external_token_kCppdecl;
    ts_external_token_kPascal; ts_external_token_kRegister;
    ts_external_token_kMwpascal; ts_external_token_kExternal;
    ts_external_token_kMessage; ts_external_token_kDeprecated;
    ts_external_token_kExperimental; ts_external_token_kPlatform;
    ts_external_token_kUnimplemented; ts_external_token_kCvar;
    ts_external_token_kExport; ts_external_token_kFar;
    ts_external_token_kNear; ts_external_token_kSafecall;
    ts_external_token_kAssembler; ts_external_token_kNostackframe;
    ts_external_token_kInterrupt; ts_external_token_kNoreturn;
    ts_external_token_kIocheck; ts_external_token_kLocal;
    ts_external_token_kHardfloat; ts_external_token_kSoftfloat;
    ts_external_token_kMs_abi_default; ts_external_token_kMs_abi_cdecl;
    ts_external_token_kSaveregisters; ts_external_token_kSysv_abi_default;
    ts_external_token_kSysv_abi_cdecl; ts_external_token_kVectorcall;
    ts_external_token_kVarargs; ts_external_token_kWinapi;
    ts_external_token_kAlias; ts_external_token_kTrue;
    ts_external_token_kFalse; ts_external_token_kAsm;
    ts_external_token_kBegin; ts_external_token_kCase;
    ts_external_token_kClass; ts_external_token_kConst;
    ts_external_token_kConstructor; ts_external_token_kDestructor;
    ts_external_token_kExports; ts_external_token_kFor;
    ts_external_token_kFunction; ts_external_token_kGoto;
    ts_external_token_kIf; ts_external_token_kInherited;
    ts_external_token_kInline; ts_external_token_kLabel;
    ts_external_token_kNil; ts_external_token_kNot;
    ts_external_token_kProcedure; ts_external_token_kProperty;
    ts_external_token_kRaise; ts_external_token_kRepeat;
    ts_external_token_kResourcestring; ts_external_token_kString;
    ts_external_token_kThreadvar; ts_external_token_kTry;
    ts_external_token_kType; ts_external_token_kUses; ts_external_token_kVar;
    ts_external_token_kWhile; ts_external_token_kWith]
  ].

(** States 10 to 12. *)
Definition ts_external_scanner_states_10 : list (list ts_external_token) :=
  [
   [ts_external_token_ppFragmentExpr; ts_external_token_ppFragmentStmt;
    ts_external_token__literalStringMultiline; ts_external_token_identifier;
    ts_external_token_kSpecialize; ts_external_token_kTrue;
    ts_external_token_kFalse; ts_external_token_kAsm;
    ts_external_token_kBegin; ts_external_token_kCase;
    ts_external_token_kConst; ts_external_token_kEnd; ts_external_token_kFor;
    ts_external_token_kFunction; ts_external_token_kGoto;
    ts_external_token_kIf; ts_external_token_kInherited;
    ts_external_token_kNil; ts_external_token_kNot;
    ts_external_token_kProcedure; ts_external_token_kRaise;
    ts_external_token_kRepeat; ts_external_token_kString;
    ts_external_token_kTry; ts_external_token_kVar; ts_external_token_kWhile;
    ts_external_token_kWith];
   [ts_external_token_ppFragmentExpr;
    ts_external_token__literalStringMultiline; ts_external_token_identifier;
    ts_external_token_kSpecialize; ts_external_token_kTrue;
    ts_external_token_kFalse; ts_external_token_kAsm;
    ts_external_token_kBegin; ts_external_token_kCase;
    ts_external_token_kConst; ts_external_token_kElse; ts_external_token_kEnd;
    ts_external_token_kFinalization; ts_external_token_kFor;
    ts_external_token_kFunction; ts_external_token_kGoto;
    ts_external_token_kIf; ts_external_token_kImplementation;
    ts_external_token_kInherited; ts_external_token_kInitialization;
    ts_external_token_kInterface; ts_external_token_kNil;
    ts_external_token_kNot; ts_external_token_kProcedure;
    ts_external_token_kRaise; ts_external_token_kRepeat;
    ts_external_token_kString; ts_external_token_kTry; ts_external_token_kVar;
    ts_external_token_kWhile; ts_external_token_kWith];
   [ts_external_token_ppFragmentExpr;
    ts_external_token__literalStringMultiline; ts_external_token_identifier;
    ts_external_token_kDefault; ts_external_token_kNodefault;
    ts_external_token_kDispId; ts_external_token_kGeneric;
    ts_external_token_kSpecialize; ts_external_token_kOperator;
    ts_external_token_kPublic; ts_external_token_kStatic;
    ts_external_token_kVirtual; ts_external_token_kAbstract;
    ts_external_token_kDynamic; ts_external_token_kOverride;
    ts_external_token_kOverload; ts_external_token_kReintroduce;
    ts_external_token_kStdcall; ts_external_token_kCdecl;
    ts_external_token_kCppdecl; ts_external_token_kPascal;
    ts_external_token_kRegister; ts_external_token_kMwpascal;
    ts_external_token_kExternal; ts_external_token_kMessage;
    ts_external_token_kDeprecated; ts_external_token_kExperimental;
    ts_external_token_kPlatform; ts_external_token_kUnimplemented;
    ts_external_token_kCvar; ts_external_token_kExport;
    ts_external_token_kFar; ts_external_token_kNear;
    ts_external_token_kSafecall; ts_external_token_kAssembler;
    ts_external_token_kNostackframe; ts_external_token_kInterrupt;
    ts_external_token_kNoreturn; ts_external_token_kIocheck;
    ts_external_token_kLocal; ts_external_token_kHardfloat;
    ts_external_token_kSoftfloat; ts_external_token_kMs_abi_default;
    ts_external_token_kMs_abi_cdecl; ts_external_token_kSaveregisters;
    ts_external_token_kSysv_abi_default; ts_external_token_kSysv_abi_cdecl;
    ts_external_token_kVectorcall; ts_external_token_kVarargs;
    ts_external_token_kWinapi; ts_external_token_kAlias;
    ts_external_token_kTrue; ts_external_token_kFalse; ts_external_token_kAsm;
    ts_external_token_kBegin; ts_external_token_kCase;
    ts_external_token_kClass; ts_external_token_kConst;
    ts_external_token_kConstructor; ts_external_token_kDestructor;
    ts_external_token_kExports; ts_external_token_kFor;
    ts_external_token_kFunction; ts_external_token_kGoto;
    ts_external_token_kIf; ts_external_token_kInherited;
    ts_external_token_kInline; ts_external_token_kLabel;
    ts_external_token_kNil; ts_external_token_kNot;
    ts_external_token_kProcedure; ts_external_token_kProperty;
    ts_external_token_kRaise; ts_external_token_kRepeat;
    ts_external_token_kResourcestring; ts_external_token_kString;
    ts_external_token_kThreadvar; ts_external_token_kTry;
    ts_external_token_kType; ts_external_token_kUses; ts_external_token_kVar;
    ts_external_token_kWhile; ts_external_token_kWith]
  ].

(** States 13 to 15. *)
Definition ts_external_scanner_states_13 : list (list ts_external_token) :=
  [
   [ts_external_token_ppFragmentExpr;
    ts_external_token__literalStringMultiline; ts_external_token_identifier;
    ts_external_token_kSpecialize; ts_external_token_kTrue;
    ts_external_token_kFalse; ts_external_token_kAsm;
    ts_external_token_kBegin; ts_external_token_kCase;
    ts_external_token_kConst; ts_external_token_kEnd;
    ts_external_token_kFinalization; ts_external_token_kFor;
    ts_external_token_kFunction; ts_external_token_kGoto;
    ts_external_token_kIf; ts_external_token_kImplementation;
    ts_external_token_kInherited; ts_external_token_kInitialization;
    ts_external_token_kInterface; ts_external_token_kNil;
    ts_external_token_kNot; ts_external_token_kProcedure;
    ts_external_token_kRaise; ts_external_token_kRepeat;
    ts_external_token_kString; ts_external_token_kTry; ts_external_token_kVar;
    ts_external_token_kWhile; ts_external_token_kWith];
   [ts_external_token_ppFragmentExpr;
    ts_external_token__literalStringMultiline; ts_external_token_identifier;
    ts_external_token_kDefault; ts_external_token_kNodefault;
    ts_external_token_kDispId; ts_external_token_kGeneric;
    ts_external_token_kSpecialize; ts_external_token_kOperator;
    ts_external_token_kPublic; ts_external_token_kStatic;
    ts_external_token_kVirtual; ts_external_token_kAbstract;
    ts_external_token_kDynamic; ts_external_token_kOverride;
    ts_external_token_kOverload; ts_external_token_kReintroduce;
    ts_external_token_kStdcall; ts_external_token_kCdecl;
    ts_external_token_kCppdecl; ts_external_token_kPascal;
    ts_external_token_kRegister; ts_external_token_kMwpascal;
    ts_external_token_kMessage; ts_external_token_kDeprecated;
    ts_external_token_kExperimental; ts_external_token_kPlatform;
    ts_external_token_kUnimplemented; ts_external_token_kCvar;
    ts_external_token_kExport; ts_external_token_kFar;
    ts_external_token_kNear; ts_external_token_kSafecall;
    ts_external_token_kAssembler; ts_external_token_kNostackframe;
    ts_external_token_kInterrupt; ts_external_token_kNoreturn;
    ts_external_token_kIocheck; ts_external_token_kLocal;
    ts_external_token_kHardfloat; ts_external_token_kSoftfloat;
    ts_external_token_kMs_abi_default; ts_external_token_kMs_abi_cdecl;
    ts_external_token_kSaveregisters; ts_external_token_kSysv_abi_default;
    ts_external_token_kSysv_abi_cdecl; ts_external_token_kVectorcall;
    ts_external_token_kVarargs; ts_external_token_kWinapi;
    ts_external_token_kAlias; ts_external_token_kTrue;
    ts_external_token_kFalse; ts_external_token_kAsm;
    ts_external_token_kBegin; ts_external_token_kCase;
    ts_external_token_kClass; ts_external_token_kConst;
    ts_external_token_kConstructor; ts_external_token_kDestructor;
    ts_external_token_kExports; ts_external_token_kFor;
    ts_external_token_kFunction; ts_external_token_kGoto;
    ts_external_token_kIf; ts_external_token_kInherited;
    ts_external_token_kInline; ts_external_token_kLabel;
    ts_external_token_kNil; ts_external_token_kNot;
    ts_external_token_kProcedure; ts_external_token_kProperty;
    ts_external_token_kRaise; ts_external_token_kRepeat;
    ts_external_token_kResourcestring; ts_external_token_kString;
    ts_external_token_kThreadvar; ts_external_token_kTry;
    ts_external_token_kType; ts_external_token_kUses; ts_external_token_kVar;
    ts_external_token_kWhile; ts_external_token_kWith];
   [ts_external_token_ppFragmentExpr; ts_external_token_ppFragmentStmt;
    ts_external_token__literalStringMultiline; ts_external_token_identifier;
    ts_external_token_kSpecialize; ts_external_token_kTrue;
    ts_external_token_kFalse; ts_external_token_kAsm;
    ts_external_token_kBegin; ts_external_token_kCase;
    ts_external_token_kConst; ts_external_token_kFor;
    ts_external_token_kFunction; ts_external_token_kGoto;
    ts_external_token_kIf; ts_external_token_kInherited;
    ts_external_token_kNil; ts_external_token_kNot;
    ts_external_token_kProcedure; ts_external_token_kRaise;
    ts_external_token_kRepeat; ts_external_token_kString;
    ts_external_token_kTry; ts_external_token_kVar; ts_external_token_kWhile;
    ts_external_token_kWith]
  ].

(** States 16 to 20. *)
Definition ts_external_scanner_states_16 : list (list ts_external_token) :=
  [
   [ts_external_token_ppFragmentExpr;
    ts_external_token__literalStringMultiline; ts_external_token_identifier;
    ts_external_token_kSpecialize; ts_external_token_kTrue;
    ts_external_token_kFalse; ts_external_token_kAsm;
    ts_external_token_kBegin; ts_external_token_kCase;
    ts_external_token_kConst; ts_external_token_kElse;
    ts_external_token_kExcept; ts_external_token_kFinally;
    ts_external_token_kFor; ts_external_token_kFunction;
    ts_external_token_kGoto; ts_external_token_kIf;
    ts_external_token_kInherited; ts_external_token_kNil;
    ts_external_token_kNot; ts_external_token_kProcedure;
    ts_external_token_kRaise; ts_external_token_kRepeat;
    ts_external_token_kString; ts_external_token_kTry; ts_external_token_kVar;
    ts_external_token_kWhile; ts_external_token_kWith];
   [ts_external_token_ppFragmentExpr;
    ts_external_token__literalStringMultiline; ts_external_token_identifier;
    ts_external_token_kSpecialize; ts_external_token_kOtherwise;
    ts_external_token_kTrue; ts_external_token_kFalse; ts_external_token_kAsm;
    ts_external_token_kBegin; ts_external_token_kCase;
    ts_external_token_kConst; ts_external_token_kElse; ts_external_token_kEnd;
    ts_external_token_kFor; ts_external_token_kFunction;
    ts_external_token_kGoto; ts_external_token_kIf;
    ts_external_token_kInherited; ts_external_token_kNil;
    ts_external_token_kNot; ts_external_token_kProcedure;
    ts_external_token_kRaise; ts_external_token_kRepeat;
    ts_external_token_kString; ts_external_token_kTry; ts_external_token_kVar;
    ts_external_token_kWhile; ts_external_token_kWith];
   [ts_external_token_ppFragmentExpr;
    ts_external_token__literalStringMultiline; ts_external_token_identifier;
    ts_external_token_kSpecialize; ts_external_token_kTrue;
    ts_external_token_kFalse; ts_external_token_kAsm;
    ts_external_token_kBegin; ts_external_token_kCase;
    ts_external_token_kConst; ts_external_token_kElse; ts_external_token_kEnd;
    ts_external_token_kFor; ts_external_token_kFunction;
    ts_external_token_kGoto; ts_external_token_kIf;
    ts_external_token_kInherited; ts_external_token_kNil;
    ts_external_token_kNot; ts_external_token_kProcedure;
    ts_external_token_kRaise; ts_external_token_kRepeat;
    ts_external_token_kString; ts_external_token_kTry; ts_external_token_kVar;
    ts_external_token_kWhile; ts_external_token_kWith];
   [ts_external_token_ppFragmentExpr;
    ts_external_token__literalStringMultiline; ts_external_token_identifier;
    ts_external_token_kSpecialize; ts_external_token_kTrue;
    ts_external_token_kFalse; ts_external_token_kAsm;
    ts_external_token_kBegin; ts_external_token_kCase;
    ts_external_token_kConst; ts_external_token_kElse; ts_external_token_kFor;
    ts_external_token_kFunction; ts_external_token_kGoto;
    ts_external_token_kIf; ts_external_token_kInherited;
    ts_external_token_kNil; ts_external_token_kNot;
    ts_external_token_kProcedure; ts_external_token_kRaise;
    ts_external_token_kRepeat; ts_external_token_kString;
    ts_external_token_kTry; ts_external_token_kUntil; ts_external_token_kVar;
    ts_external_token_kWhile; ts_external_token_kWith];
   [ts_external_token_ppFragmentExpr;
    ts_external_token__literalStringMultiline; ts_external_token_identifier;
    ts_external_token_kSpecialize; ts_external_token_kTrue;
    ts_external_token_kFalse; ts_external_token_kAsm;
    ts_external_token_kBegin; ts_external_token_kCase;
    ts_external_token_kConst; ts_external_token_kExcept;
    ts_external_token_kFinally; ts_external_token_kFor;
    ts_external_token_kFunction; ts_external_token_kGoto;
    ts_external_token_kIf; ts_external_token_kInherited;
    ts_external_token_kNil; ts_external_token_kNot;
    ts_external_token_kProcedure; ts_external_token_kRaise;
    ts_external_token_kRepeat; ts_external_token_kString;
    ts_external_token_kTry; ts_external_token_kVar; ts_external_token_kWhile;
    ts_external_token_kWith]
  ].

(** States 21 to 23. *)
Definition ts_external_scanner_states_21 : list (list ts_external_token) :=
  [
   [ts_external_token_ppFragmentExpr;
    ts_external_token__literalStringMultiline; ts_external_token_identifier;
    ts_external_token_kDefault; ts_external_token_kNodefault;
    ts_external_token_kDispId; ts_external_token_kGeneric;
    ts_external_token_kSpecialize; ts_external_token_kOperator;
    ts_external_token_kPublic; ts_external_token_kForward;
    ts_external_token_kStatic; ts_external_token_kVirtual;
    ts_external_token_kAbstract; ts_external_token_kDynamic;
    ts_external_token_kOverride; ts_external_token_kOverload;
    ts_external_token_kReintroduce; ts_external_token_kStdcall;
    ts_external_token_kCdecl; ts_external_token_kCppdecl;
    ts_external_token_kPascal; ts_external_token_kRegister;
    ts_external_token_kMwpascal; ts_external_token_kExternal;
    ts_external_token_kMessage; ts_external_token_kDeprecated;
    ts_external_token_kExperimental; ts_external_token_kPlatform;
    ts_external_token_kUnimplemented; ts_external_token_kCvar;
    ts_external_token_kExport; ts_external_token_kFar;
    ts_external_token_kNear; ts_external_token_kSafecall;
    ts_external_token_kAssembler; ts_external_token_kNostackframe;
    ts_external_token_kInterrupt; ts_external_token_kNoreturn;
    ts_external_token_kIocheck; ts_external_token_kLocal;
    ts_external_token_kHardfloat; ts_external_token_kSoftfloat;
    ts_external_token_kMs_abi_default; ts_external_token_kMs_abi_cdecl;
    ts_external_token_kSaveregisters; ts_external_token_kSysv_abi_default;
    ts_external_token_kSysv_abi_cdecl; ts_external_token_kVectorcall;
    ts_external_token_kVarargs; ts_external_token_kWinapi;
    ts_external_token_kAlias; ts_external_token_kTrue;
    ts_external_token_kFalse; ts_external_token_kAsm;
    ts_external_token_kBegin; ts_external_token_kCase;
    ts_external_token_kClass; ts_external_token_kConst;
    ts_external_token_kConstructor; ts_external_token_kDestructor;
    ts_external_token_kExports; ts_external_token_kFor;
    ts_external_token_kFunction; ts_external_token_kGoto;
    ts_external_token_kIf; ts_external_token_kInherited;
    ts_external_token_kLabel; ts_external_token_kNil; ts_external_token_kNot;
    ts_external_token_kProcedure; ts_external_token_kProperty;
    ts_external_token_kRaise; ts_external_token_kRepeat;
    ts_external_token_kResourcestring; ts_external_token_kString;
    ts_external_token_kThreadvar; ts_external_token_kTry;
    ts_external_token_kType; ts_external_token_kUses; ts_external_token_kVar;
    ts_external_token_kWhile; ts_external_token_kWith];
   [ts_external_token_ppFragmentExpr;
    ts_external_token__literalStringMultiline; ts_external_token_identifier;
    ts_external_token_kSpecialize; ts_external_token_kTrue;
    ts_external_token_kFalse; ts_external_token_kAsm;
    ts_external_token_kBegin; ts_external_token_kCase;
    ts_external_token_kConst; ts_external_token_kElse; ts_external_token_kFor;
    ts_external_token_kFunction; ts_external_token_kGoto;
    ts_external_token_kIf; ts_external_token_kInherited;
    ts_external_token_kNil; ts_external_token_kNot;
    ts_external_token_kProcedure; ts_external_token_kRaise;
    ts_external_token_kRepeat; ts_external_token_kString;
    ts_external_token_kTry; ts_external_token_kVar; ts_external_token_kWhile;
    ts_external_token_kWith];
   [ts_external_token_ppFragmentExpr;
    ts_external_token__literalStringMultiline; ts_external_token_identifier;
    ts_external_token_kSpecialize; ts_external_token_kTrue;
    ts_external_token_kFalse; ts_external_token_kAsm;
    ts_external_token_kBegin; ts_external_token_kCase;
    ts_external_token_kConst; ts_external_token_kEnd; ts_external_token_kFor;
    ts_external_token_kFunction; ts_external_token_kGoto;
    ts_external_token_kIf; ts_external_token_kInherited;
    ts_external_token_kNil; ts_external_token_kNot;
    ts_external_token_kProcedure; ts_external_token_kRaise;
    ts_external_token_kRepeat; ts_external_token_kString;
    ts_external_token_kTry; ts_external_token_kVar; ts_external_token_kWhile;
    ts_external_token_kWith]
  ].

(** States 24 to 25. *)
Definition ts_external_scanner_states_24 : list (list ts_external_token) :=
  [
   [ts_external_token_ppFragmentExpr;
    ts_external_token__literalStringMultiline; ts_external_token_identifier;
    ts_external_token_kSpecialize; ts_external_token_kTrue;
    ts_external_token_kFalse; ts_external_token_kAsm;
    ts_external_token_kBegin; ts_external_token_kCase;
    ts_external_token_kConst; ts_external_token_kFor;
    ts_external_token_kFunction; ts_external_token_kGoto;
    ts_external_token_kIf; ts_external_token_kInherited;
    ts_external_token_kNil; ts_external_token_kNot;
    ts_external_token_kProcedure; ts_external_token_kRaise;
    ts_external_token_kRepeat; ts_external_token_kString;
    ts_external_token_kTry; ts_external_token_kUntil; ts_external_token_kVar;
    ts_external_token_kWhile; ts_external_token_kWith];
   [ts_external_token_ppFragmentExpr;
    ts_external_token__literalStringMultiline; ts_external_token_identifier;
    ts_external_token_kDefault; ts_external_token_kNodefault;
    ts_external_token_kDispId; ts_external_token_kGeneric;
    ts_external_token_kSpecialize; ts_external_token_kOperator;
    ts_external_token_kPublic; ts_external_token_kStatic;
    ts_external_token_kVirtual; ts_external_token_kAbstract;
    ts_external_token_kDynamic; ts_external_token_kOverride;
    ts_external_token_kOverload; ts_external_token_kReintroduce;
    ts_external_token_kStdcall; ts_external_token_kCdecl;
    ts_external_token_kCppdecl; ts_external_token_kPascal;
    ts_external_token_kRegister; ts_external_token_kMwpascal;
    ts_external_token_kMessage; ts_external_token_kDeprecated;
    ts_external_token_kExperimental; ts_external_token_kPlatform;
    ts_external_token_kUnimplemented; ts_external_token_kCvar;
    ts_external_token_kExport; ts_external_token_kFar;
    ts_external_token_kNear; ts_external_token_kSafecall;
    ts_external_token_kAssembler; ts_external_token_kNostackframe;
    ts_external_token_kInterrupt; ts_external_token_kNoreturn;
    ts_external_token_kIocheck; ts_external_token_kLocal;
    ts_external_token_kHardfloat; ts_external_token_kSoftfloat;
    ts_external_token_kMs_abi_default; ts_external_token_kMs_abi_cdecl;
    ts_external_token_kSaveregisters; ts_external_token_kSysv_abi_default;
    ts_external_token_kSysv_abi_cdecl; ts_external_token_kVectorcall;
    ts_external_token_kVarargs; ts_external_token_kWinapi;
    ts_external_token_kAlias; ts_external_token_kTrue;
    ts_external_token_kFalse; ts_external_token_kAsm;
    ts_external_token_kBegin; ts_external_token_kCase;
    ts_external_token_kClass; ts_external_token_kConst;
    ts_external_token_kConstructor; ts_external_token_kDestructor;
    ts_external_token_kElse; ts_external_token_kExports;
    ts_external_token_kFor; ts_external_token_kFunction;
    ts_external_token_kGoto; ts_external_token_kIf;
    ts_external_token_kInherited; ts_external_token_kLabel;
    ts_external_token_kNil; ts_external_token_kNot;
    ts_external_token_kProcedure; ts_external_token_kProperty;
    ts_external_token_kRaise; ts_external_token_kRepeat;
    ts_external_token_kResourcestring; ts_external_token_kString;
    ts_external_token_kThreadvar; ts_external_token_kTry;
    ts_external_token_kType; ts_external_token_kUses; ts_external_token_kVar;
    ts_external_token_kWhile; ts_external_token_kWith]
  ].

(** States 26 to 27. *)
Definition ts_external_scanner_states_26 : list (list ts_external_token) :=
  [
   [ts_external_token_identifier; ts_external_token_kDefault;
    ts_external_token_kNodefault; ts_external_token_kDispId;
    ts_external_token_kGeneric; ts_external_token_kOperator;
    ts_external_token_kPublic; ts_external_token_kStatic;
    ts_external_token_kVirtual; ts_external_token_kAbstract;
    ts_external_token_kDynamic; ts_external_token_kOverride;
    ts_external_token_kOverload; ts_external_token_kReintroduce;
    ts_external_token_kStdcall; ts_external_token_kCdecl;
    ts_external_token_kCppdecl; ts_external_token_kPascal;
    ts_external_token_kRegister; ts_external_token_kMwpascal;
    ts_external_token_kMessage; ts_external_token_kDeprecated;
    ts_external_token_kExperimental; ts_external_token_kPlatform;
    ts_external_token_kUnimplemented; ts_external_token_kCvar;
    ts_external_token_kExport; ts_external_token_kFar;
    ts_external_token_kNear; ts_external_token_kSafecall;
    ts_external_token_kAssembler; ts_external_token_kNostackframe;
    ts_external_token_kInterrupt; ts_external_token_kNoreturn;
    ts_external_token_kIocheck; ts_external_token_kLocal;
    ts_external_token_kHardfloat; ts_external_token_kSoftfloat;
    ts_external_token_kMs_abi_default; ts_external_token_kMs_abi_cdecl;
    ts_external_token_kSaveregisters; ts_external_token_kSysv_abi_default;
    ts_external_token_kSysv_abi_cdecl; ts_external_token_kVectorcall;
    ts_external_token_kVarargs; ts_external_token_kWinapi;
    ts_external_token_kAlias; ts_external_token_kAnd; ts_external_token_kAs;
    ts_external_token_kClass; ts_external_token_kConstructor;
    ts_external_token_kDestructor; ts_external_token_kDiv;
    ts_external_token_kFunction; ts_external_token_kIn; ts_external_token_kIs;
    ts_external_token_kMod; ts_external_token_kNot; ts_external_token_kOr;
    ts_external_token_kProcedure; ts_external_token_kProperty;
    ts_external_token_kShl; ts_external_token_kShr; ts_external_token_kXor];
   [ts_external_token_ppFragmentExpr;
    ts_external_token__literalStringMultiline; ts_external_token_identifier;
    ts_external_token_kSpecialize; ts_external_token_kTrue;
    ts_external_token_kFalse; ts_external_token_kAsm;
    ts_external_token_kBegin; ts_external_token_kCase;
    ts_external_token_kConst; ts_external_token_kFor;
    ts_external_token_kFunction; ts_external_token_kGoto;
    ts_external_token_kIf; ts_external_token_kInherited;
    ts_external_token_kNil; ts_external_token_kNot;
    ts_external_token_kProcedure; ts_external_token_kRaise;
    ts_external_token_kRepeat; ts_external_token_kString;
    ts_external_token_kTry; ts_external_token_kVar; ts_external_token_kWhile;
    ts_external_token_kWith]
  ].

(** States 28 to 29. *)
Definition ts_external_scanner_states_28 : list (list ts_external_token) :=
  [
   [ts_external_token_kDefault; ts_external_token_kNodefault;
    ts_external_token_kDispId; ts_external_token_kGeneric;
    ts_external_token_kOperator; ts_external_token_kPublic;
    ts_external_token_kForward; ts_external_token_kStatic;
    ts_external_token_kVirtual; ts_external_token_kAbstract;
    ts_external_token_kDynamic; ts_external_token_kOverride;
    ts_external_token_kOverload; ts_external_token_kReintroduce;
    ts_external_token_kStdcall; ts_external_token_kCdecl;
    ts_external_token_kCppdecl; ts_external_token_kPascal;
    ts_external_token_kRegister; ts_external_token_kMwpascal;
    ts_external_token_kExternal; ts_external_token_kMessage;
    ts_external_token_kDeprecated; ts_external_token_kExperimental;
    ts_external_token_kPlatform; ts_external_token_kUnimplemented;
    ts_external_token_kCvar; ts_external_token_kExport;
    ts_external_token_kFar; ts_external_token_kNear;
    ts_external_token_kSafecall; ts_external_token_kAssembler;
    ts_external_token_kNostackframe; ts_external_token_kInterrupt;
    ts_external_token_kNoreturn; ts_external_token_kIocheck;
    ts_external_token_kLocal; ts_external_token_kHardfloat;
    ts_external_token_kSoftfloat; ts_external_token_kMs_abi_default;
    ts_external_token_kMs_abi_cdecl; ts_external_token_kSaveregisters;
    ts_external_token_kSysv_abi_default; ts_external_token_kSysv_abi_cdecl;
    ts_external_token_kVectorcall; ts_external_token_kVarargs;
    ts_external_token_kWinapi; ts_external_token_kAlias;
    ts_external_token_kClass; ts_external_token_kConst;
    ts_external_token_kConstructor; ts_external_token_kDestructor;
    ts_external_token_kEnd; ts_external_token_kExports;
    ts_external_token_kFinalization; ts_external_token_kFunction;
    ts_external_token_kImplementation; ts_external_token_kInitialization;
    ts_external_token_kInline; ts_external_token_kInterface;
    ts_external_token_kLabel; ts_external_token_kProcedure;
    ts_external_token_kProperty; ts_external_token_kResourcestring;
    ts_external_token_kThreadvar; ts_external_token_kType;
    ts_external_token_kUses; ts_external_token_kVar];
   [ts_external_token_identifier; ts_external_token_kDefault;
    ts_external_token_kNodefault; ts_external_token_kDispId;
    ts_external_token_kGeneric; ts_external_token_kOperator;
    ts_external_token_kPublic; ts_external_token_kStatic;
    ts_external_token_kVirtual; ts_external_token_kAbstract;
    ts_external_token_kDynamic; ts_external_token_kOverride;
    ts_external_token_kOverload; ts_external_token_kReintroduce;
    ts_external_token_kStdcall; ts_external_token_kCdecl;
    ts_external_token_kCppdecl; ts_external_token_kPascal;
    ts_external_token_kRegister; ts_external_token_kMwpascal;
    ts_external_token_kMessage; ts_external_token_kDeprecated;
    ts_external_token_kExperimental; ts_external_token_kPlatform;
    ts_external_token_kUnimplemented; ts_external_token_kCvar;
    ts_external_token_kExport; ts_external_token_kFar;
    ts_external_token_kNear; ts_external_token_kSafecall;
    ts_external_token_kAssembler; ts_external_token_kNostackframe;
    ts_external_token_kInterrupt; ts_external_token_kNoreturn;
    ts_external_token_kIocheck; ts_external_token_kLocal;
    ts_external_token_kHardfloat; ts_external_token_kSoftfloat;
    ts_external_token_kMs_abi_default; ts_external_token_kMs_abi_cdecl;
    ts_external_token_kSaveregisters; ts_external_token_kSysv_abi_default;
    ts_external_token_kSysv_abi_cdecl; ts_external_token_kVectorcall;
    ts_external_token_kVarargs; ts_external_token_kWinapi;
    ts_external_token_kAlias; ts_external_token_kClass;
    ts_external_token_kConst; ts_external_token_kConstructor;
    ts_external_token_kDestructor; ts_external_token_kEnd;
    ts_external_token_kExports; ts_external_token_kFinalization;
    ts_external_token_kFunction; ts_external_token_kImplementation;
    ts_external_token_kInitialization; ts_external_token_kInterface;
    ts_external_token_kLabel; ts_external_token_kProcedure;
    ts_external_token_kProperty; ts_external_token_kResourcestring;
    ts_external_token_kThreadvar; ts_external_token_kType;
    ts_external_token_kUses; ts_external_token_kVar]
  ].

(** States 30 to 31. *)
Definition ts_external_scanner_states_30 : list (list ts_external_token) :=
  [
   [ts_external_token_identifier; ts_external_token_kDefault;
    ts_external_token_kNodefault; ts_external_token_kDispId;
    ts_external_token_kGeneric; ts_external_token_kOperator;
    ts_external_token_kPublic; ts_external_token_kStatic;
    ts_external_token_kVirtual; ts_external_token_kAbstract;
    ts_external_token_kDynamic; ts_external_token_kOverride;
    ts_external_token_kOverload; ts_external_token_kReintroduce;
    ts_external_token_kStdcall; ts_external_token_kCdecl;
    ts_external_token_kCppdecl; ts_external_token_kPascal;
    ts_external_token_kRegister; ts_external_token_kMwpascal;
    ts_external_token_kMessage; ts_external_token_kDeprecated;
    ts_external_token_kExperimental; ts_external_token_kPlatform;
    ts_external_token_kUnimplemented; ts_external_token_kCvar;
    ts_external_token_kExport; ts_external_token_kFar;
    ts_external_token_kNear; ts_external_token_kSafecall;
    ts_external_token_kAssembler; ts_external_token_kNostackframe;
    ts_external_token_kInterrupt; ts_external_token_kNoreturn;
    ts_external_token_kIocheck; ts_external_token_kLocal;
    ts_external_token_kHardfloat; ts_external_token_kSoftfloat;
    ts_external_token_kMs_abi_default; ts_external_token_kMs_abi_cdecl;
    ts_external_token_kSaveregisters; ts_external_token_kSysv_abi_default;
    ts_external_token_kSysv_abi_cdecl; ts_external_token_kVectorcall;
    ts_external_token_kVarargs; ts_external_token_kWinapi;
    ts_external_token_kAlias; ts_external_token_kBegin;
    ts_external_token_kClass; ts_external_token_kConst;
    ts_external_token_kConstructor; ts_external_token_kDestructor;
    ts_external_token_kEnd; ts_external_token_kExports;
    ts_external_token_kFinalization; ts_external_token_kFunction;
    ts_external_token_kImplementation; ts_external_token_kInitialization;
    ts_external_token_kInterface; ts_external_token_kLabel;
    ts_external_token_kProcedure; ts_external_token_kResourcestring;
    ts_external_token_kThreadvar; ts_external_token_kType;
    ts_external_token_kUses; ts_external_token_kVar];
   [ts_external_token_identifier; ts_external_token_kDefault;
    ts_external_token_kNodefault; ts_external_token_kDispId;
    ts_external_token_kGeneric; ts_external_token_kOperator;
    ts_external_token_kPublished; ts_external_token_kPublic;
    ts_external_token_kProtected; ts_external_token_kPrivate;
    ts_external_token_kStrict; ts_external_token_kRequired;
    ts_external_token_kOptional; ts_external_token_kStatic;
    ts_external_token_kVirtual; ts_external_token_kAbstract;
    ts_external_token_kDynamic; ts_external_token_kOverride;
    ts_external_token_kOverload; ts_external_token_kReintroduce;
    ts_external_token_kStdcall; ts_external_token_kCdecl;
    ts_external_token_kCppdecl; ts_external_token_kPascal;
    ts_external_token_kRegister; ts_external_token_kMwpascal;
    ts_external_token_kMessage; ts_external_token_kDeprecated;
    ts_external_token_kExperimental; ts_external_token_kPlatform;
    ts_external_token_kUnimplemented; ts_external_token_kCvar;
    ts_external_token_kExport; ts_external_token_kFar;
    ts_external_token_kNear; ts_external_token_kSafecall;
    ts_external_token_kAssembler; ts_external_token_kNostackframe;
    ts_external_token_kInterrupt; ts_external_token_kNoreturn;
    ts_external_token_kIocheck; ts_external_token_kLocal;
    ts_external_token_kHardfloat; ts_external_token_kSoftfloat;
    ts_external_token_kMs_abi_default; ts_external_token_kMs_abi_cdecl;
    ts_external_token_kSaveregisters; ts_external_token_kSysv_abi_default;
    ts_external_token_kSysv_abi_cdecl; ts_external_token_kVectorcall;
    ts_external_token_kVarargs; ts_external_token_kWinapi;
    ts_external_token_kAlias; ts_external_token_kCase;
    ts_external_token_kClass; ts_external_token_kConst;
    ts_external_token_kConstructor; ts_external_token_kDestructor;
    ts_external_token_kEnd; ts_external_token_kFunction;
    ts_external_token_kProcedure; ts_external_token_kProperty;
    ts_external_token_kResourcestring; ts_external_token_kThreadvar;
    ts_external_token_kType; ts_external_token_kVar]
  ].

(** States 32 to 33. *)
Definition ts_external_scanner_states_32 : list (list ts_external_token) :=
  [
   [ts_external_token_identifier; ts_external_token_kDefault;
    ts_external_token_kNodefault; ts_external_token_kDispId;
    ts_external_token_kGeneric; ts_external_token_kOperator;
    ts_external_token_kPublished; ts_external_token_kPublic;
    ts_external_token_kProtected; ts_external_token_kPrivate;
    ts_external_token_kStrict; ts_external_token_kRequired;
    ts_external_token_kOptional; ts_external_token_kStatic;
    ts_external_token_kVirtual; ts_external_token_kAbstract;
    ts_external_token_kDynamic; ts_external_token_kOverride;
    ts_external_token_kOverload; ts_external_token_kReintroduce;
    ts_external_token_kStdcall; ts_external_token_kCdecl;
    ts_external_token_kCppdecl; ts_external_token_kPascal;
    ts_external_token_kRegister; ts_external_token_kMwpascal;
    ts_external_token_kExternal; ts_external_token_kMessage;
    ts_external_token_kDeprecated; ts_external_token_kExperimental;
    ts_external_token_kPlatform; ts_external_token_kUnimplemented;
    ts_external_token_kCvar; ts_external_token_kExport;
    ts_external_token_kFar; ts_external_token_kNear;
    ts_external_token_kSafecall; ts_external_token_kAssembler;
    ts_external_token_kNostackframe; ts_external_token_kInterrupt;
    ts_external_token_kNoreturn; ts_external_token_kIocheck;
    ts_external_token_kLocal; ts_external_token_kHardfloat;
    ts_external_token_kSoftfloat; ts_external_token_kMs_abi_default;
    ts_external_token_kMs_abi_cdecl; ts_external_token_kSaveregisters;
    ts_external_token_kSysv_abi_default; ts_external_token_kSysv_abi_cdecl;
    ts_external_token_kVectorcall; ts_external_token_kVarargs;
    ts_external_token_kWinapi; ts_external_token_kAlias;
    ts_external_token_kCase; ts_external_token_kClass;
    ts_external_token_kConst; ts_external_token_kConstructor;
    ts_external_token_kDestructor; ts_external_token_kEnd;
    ts_external_token_kFunction; ts_external_token_kInline;
    ts_external_token_kProcedure; ts_external_token_kProperty;
    ts_external_token_kResourcestring; ts_external_token_kThreadvar;
    ts_external_token_kType; ts_external_token_kVar];
   [ts_external_token_identifier; ts_external_token_kDefault;
    ts_external_token_kNodefault; ts_external_token_kDispId;
    ts_external_token_kGeneric; ts_external_token_kOperator;
    ts_external_token_kPublic; ts_external_token_kStatic;
    ts_external_token_kVirtual; ts_external_token_kAbstract;
    ts_external_token_kDynamic; ts_external_token_kOverride;
    ts_external_token_kOverload; ts_external_token_kReintroduce;
    ts_external_token_kStdcall; ts_external_token_kCdecl;
    ts_external_token_kCppdecl; ts_external_token_kPascal;
    ts_external_token_kRegister; ts_external_token_kMwpascal;
    ts_external_token_kExternal; ts_external_token_kMessage;
    ts_external_token_kDeprecated; ts_external_token_kExperimental;
    ts_external_token_kPlatform; ts_external_token_kUnimplemented;
    ts_external_token_kCvar; ts_external_token_kExport;
    ts_external_token_kFar; ts_external_token_kNear;
    ts_external_token_kSafecall; ts_external_token_kAssembler;
    ts_external_token_kNostackframe; ts_external_token_kInterrupt;
    ts_external_token_kNoreturn; ts_external_token_kIocheck;
    ts_external_token_kLocal; ts_external_token_kHardfloat;
    ts_external_token_kSoftfloat; ts_external_token_kMs_abi_default;
    ts_external_token_kMs_abi_cdecl; ts_external_token_kSaveregisters;
    ts_external_token_kSysv_abi_default; ts_external_token_kSysv_abi_cdecl;
    ts_external_token_kVectorcall; ts_external_token_kVarargs;
    ts_external_token_kWinapi; ts_external_token_kAlias;
    ts_external_token_kClass; ts_external_token_kConst;
    ts_external_token_kConstructor; ts_external_token_kDestructor;
    ts_external_token_kEnd; ts_external_token_kExports;
    ts_external_token_kFinalization; ts_external_token_kFunction;
    ts_external_token_kImplementation; ts_external_token_kInitialization;
    ts_external_token_kInline; ts_external_token_kInterface;
    ts_external_token_kLabel; ts_external_token_kProcedure;
    ts_external_token_kProperty; ts_external_token_kResourcestring;
    ts_external_token_kThreadvar; ts_external_token_kType;
    ts_external_token_kUses; ts_external_token_kVar]
  ].

(** States 34 to 35. *)
Definition ts_external_scanner_states_34 : list (list ts_external_token) :=
  [
   [ts_external_token_identifier; ts_external_token_kDefault;
    ts_external_token_kNodefault; ts_external_token_kDispId;
    ts_external_token_kGeneric; ts_external_token_kOperator;
    ts_external_token_kPublic; ts_external_token_kStatic;
    ts_external_token_kVirtual; ts_external_token_kAbstract;
    ts_external_token_kDynamic; ts_external_token_kOverride;
    ts_external_token_kOverload; ts_external_token_kReintroduce;
    ts_external_token_kStdcall; ts_external_token_kCdecl;
    ts_external_token_kCppdecl; ts_external_token_kPascal;
    ts_external_token_kRegister; ts_external_token_kMwpascal;
    ts_external_token_kExternal; ts_external_token_kMessage;
    ts_external_token_kDeprecated; ts_external_token_kExperimental;
    ts_external_token_kPlatform; ts_external_token_kUnimplemented;
    ts_external_token_kCvar; ts_external_token_kExport;
    ts_external_token_kFar; ts_external_token_kNear;
    ts_external_token_kSafecall; ts_external_token_kAssembler;
    ts_external_token_kNostackframe; ts_external_token_kInterrupt;
    ts_external_token_kNoreturn; ts_external_token_kIocheck;
    ts_external_token_kLocal; ts_external_token_kHardfloat;
    ts_external_token_kSoftfloat; ts_external_token_kMs_abi_default;
    ts_external_token_kMs_abi_cdecl; ts_external_token_kSaveregisters;
    ts_external_token_kSysv_abi_default; ts_external_token_kSysv_abi_cdecl;
    ts_external_token_kVectorcall; ts_external_token_kVarargs;
    ts_external_token_kWinapi; ts_external_token_kAlias;
    ts_external_token_kBegin; ts_external_token_kClass;
    ts_external_token_kConst; ts_external_token_kConstructor;
    ts_external_token_kDestructor; ts_external_token_kEnd;
    ts_external_token_kExports; ts_external_token_kFinalization;
    ts_external_token_kFunction; ts_external_token_kImplementation;
    ts_external_token_kInitialization; ts_external_token_kInline;
    ts_external_token_kInterface; ts_external_token_kLabel;
    ts_external_token_kProcedure; ts_external_token_kResourcestring;
    ts_external_token_kThreadvar; ts_external_token_kType;
    ts_external_token_kUses; ts_external_token_kVar];
   [ts_external_token_kDefault; ts_external_token_kNodefault;
    ts_external_token_kDispId; ts_external_token_kGeneric;
    ts_external_token_kOperator; ts_external_token_kPublic;
    ts_external_token_kStatic; ts_external_token_kVirtual;
    ts_external_token_kAbstract; ts_external_token_kDynamic;
    ts_external_token_kOverride; ts_external_token_kOverload;
    ts_external_token_kReintroduce; ts_external_token_kStdcall;
    ts_external_token_kCdecl; ts_external_token_kCppdecl;
    ts_external_token_kPascal; ts_external_token_kRegister;
    ts_external_token_kMwpascal; ts_external_token_kMessage;
    ts_external_token_kDeprecated; ts_external_token_kExperimental;
    ts_external_token_kPlatform; ts_external_token_kUnimplemented;
    ts_external_token_kCvar; ts_external_token_kExport;
    ts_external_token_kFar; ts_external_token_kNear;
    ts_external_token_kSafecall; ts_external_token_kAssembler;
    ts_external_token_kNostackframe; ts_external_token_kInterrupt;
    ts_external_token_kNoreturn; ts_external_token_kIocheck;
    ts_external_token_kLocal; ts_external_token_kHardfloat;
    ts_external_token_kSoftfloat; ts_external_token_kMs_abi_default;
    ts_external_token_kMs_abi_cdecl; ts_external_token_kSaveregisters;
    ts_external_token_kSysv_abi_default; ts_external_token_kSysv_abi_cdecl;
    ts_external_token_kVectorcall; ts_external_token_kVarargs;
    ts_external_token_kWinapi; ts_external_token_kAlias;
    ts_external_token_kClass; ts_external_token_kConst;
    ts_external_token_kConstructor; ts_external_token_kDestructor;
    ts_external_token_kEnd; ts_external_token_kExports;
    ts_external_token_kFinalization; ts_external_token_kFunction;
    ts_external_token_kImplementation; ts_external_token_kInitialization;
    ts_external_token_kInline; ts_external_token_kInterface;
    ts_external_token_kLabel; ts_external_token_kProcedure;
    ts_external_token_kProperty; ts_external_token_kResourcestring;
    ts_external_token_kThreadvar; ts_external_token_kType;
    ts_external_token_kUses; ts_external_token_kVar]
  ].

(** States 36 to 37. *)
Definition ts_external_scanner_states_36 : list (list ts_external_token) :=
  [
   [ts_external_token_kDefault; ts_external_token_kNodefault;
    ts_external_token_kDispId; ts_external_token_kGeneric;
    ts_external_token_kOperator; ts_external_token_kPublished;
    ts_external_token_kPublic; ts_external_token_kProtected;
    ts_external_token_kPrivate; ts_external_token_kStrict;
    ts_external_token_kRequired; ts_external_token_kOptional;
    ts_external_token_kStatic; ts_external_token_kVirtual;
    ts_external_token_kAbstract; ts_external_token_kDynamic;
    ts_external_token_kOverride; ts_external_token_kOverload;
    ts_external_token_kReintroduce; ts_external_token_kStdcall;
    ts_external_token_kCdecl; ts_external_token_kCppdecl;
    ts_external_token_kPascal; ts_external_token_kRegister;
    ts_external_token_kMwpascal; ts_external_token_kMessage;
    ts_external_token_kDeprecated; ts_external_token_kExperimental;
    ts_external_token_kPlatform; ts_external_token_kUnimplemented;
    ts_external_token_kCvar; ts_external_token_kExport;
    ts_external_token_kFar; ts_external_token_kNear;
    ts_external_token_kSafecall; ts_external_token_kAssembler;
    ts_external_token_kNostackframe; ts_external_token_kInterrupt;
    ts_external_token_kNoreturn; ts_external_token_kIocheck;
    ts_external_token_kLocal; ts_external_token_kHardfloat;
    ts_external_token_kSoftfloat; ts_external_token_kMs_abi_default;
    ts_external_token_kMs_abi_cdecl; ts_external_token_kSaveregisters;
    ts_external_token_kSysv_abi_default; ts_external_token_kSysv_abi_cdecl;
    ts_external_token_kVectorcall; ts_external_token_kVarargs;
    ts_external_token_kWinapi; ts_external_token_kAlias;
    ts_external_token_kCase; ts_external_token_kClass;
    ts_external_token_kConst; ts_external_token_kConstructor;
    ts_external_token_kDestructor; ts_external_token_kEnd;
    ts_external_token_kFunction; ts_external_token_kInline;
    ts_external_token_kProcedure; ts_external_token_kProperty;
    ts_external_token_kResourcestring; ts_external_token_kThreadvar;
    ts_external_token_kType; ts_external_token_kVar];
   [ts_external_token_identifier; ts_external_token_kDefault;
    ts_external_token_kNodefault; ts_external_token_kDispId;
    ts_external_token_kGeneric; ts_external_token_kOperator;
    ts_external_token_kPublic; ts_external_token_kStatic;
    ts_external_token_kVirtual; ts_external_token_kAbstract;
    ts_external_token_kDynamic; ts_external_token_kOverride;
    ts_external_token_kOverload; ts_external_token_kReintroduce;
    ts_external_token_kStdcall; ts_external_token_kCdecl;
    ts_external_token_kCppdecl; ts_external_token_kPascal;
    ts_external_token_kRegister; ts_external_token_kMwpascal;
    ts_external_token_kMessage; ts_external_token_kDeprecated;
    ts_external_token_kExperimental; ts_external_token_kPlatform;
    ts_external_token_kUnimplemented; ts_external_token_kCvar;
    ts_external_token_kExport; ts_external_token_kFar;
    ts_external_token_kNear; ts_external_token_kSafecall;
    ts_external_token_kAssembler; ts_external_token_kNostackframe;
    ts_external_token_kInterrupt; ts_external_token_kNoreturn;
    ts_external_token_kIocheck; ts_external_token_kLocal;
    ts_external_token_kHardfloat; ts_external_token_kSoftfloat;
    ts_external_token_kMs_abi_default; ts_external_token_kMs_abi_cdecl;
    ts_external_token_kSaveregisters; ts_external_token_kSysv_abi_default;
    ts_external_token_kSysv_abi_cdecl; ts_external_token_kVectorcall;
    ts_external_token_kVarargs; ts_external_token_kWinapi;
    ts_external_token_kAlias; ts_external_token_kClass;
    ts_external_token_kConst; ts_external_token_kConstructor;
    ts_external_token_kDestructor; ts_external_token_kEnd;
    ts_external_token_kExports; ts_external_token_kFinalization;
    ts_external_token_kFunction; ts_external_token_kImplementation;
    ts_external_token_kInitialization; ts_external_token_kInline;
    ts_external_token_kInterface; ts_external_token_kLabel;
    ts_external_token_kProcedure; ts_external_token_kProperty;
    ts_external_token_kResourcestring; ts_external_token_kThreadvar;
    ts_external_token_kType; ts_external_token_kUses; ts_external_token_kVar]
  ].

(** States 38 to 39. *)
Definition ts_external_scanner_states_38 : list (list ts_external_token) :=
  [
   [ts_external_token_identifier; ts_external_token_kDefault;
    ts_external_token_kNodefault; ts_external_token_kDispId;
    ts_external_token_kGeneric; ts_external_token_kOperator;
    ts_external_token_kPublic; ts_external_token_kStatic;
    ts_external_token_kVirtual; ts_external_token_kAbstract;
    ts_external_token_kDynamic; ts_external_token_kOverride;
    ts_external_token_kOverload; ts_external_token_kReintroduce;
    ts_external_token_kStdcall; ts_external_token_kCdecl;
    ts_external_token_kCppdecl; ts_external_token_kPascal;
    ts_external_token_kRegister; ts_external_token_kMwpascal;
    ts_external_token_kMessage; ts_external_token_kDeprecated;
    ts_external_token_kExperimental; ts_external_token_kPlatform;
    ts_external_token_kUnimplemented; ts_external_token_kCvar;
    ts_external_token_kExport; ts_external_token_kFar;
    ts_external_token_kNear; ts_external_token_kSafecall;
    ts_external_token_kAssembler; ts_external_token_kNostackframe;
    ts_external_token_kInterrupt; ts_external_token_kNoreturn;
    ts_external_token_kIocheck; ts_external_token_kLocal;
    ts_external_token_kHardfloat; ts_external_token_kSoftfloat;
    ts_external_token_kMs_abi_default; ts_external_token_kMs_abi_cdecl;
    ts_external_token_kSaveregisters; ts_external_token_kSysv_abi_default;
    ts_external_token_kSysv_abi_cdecl; ts_external_token_kVectorcall;
    ts_external_token_kVarargs; ts_external_token_kWinapi;
    ts_external_token_kAlias; ts_external_token_kBegin;
    ts_external_token_kClass; ts_external_token_kConst;
    ts_external_token_kConstructor; ts_external_token_kDestructor;
    ts_external_token_kEnd; ts_external_token_kExports;
    ts_external_token_kFinalization; ts_external_token_kFunction;
    ts_external_token_kImplementation; ts_external_token_kInitialization;
    ts_external_token_kInline; ts_external_token_kInterface;
    ts_external_token_kLabel; ts_external_token_kProcedure;
    ts_external_token_kResourcestring; ts_external_token_kThreadvar;
    ts_external_token_kType; ts_external_token_kUses; ts_external_token_kVar];
   [ts_external_token_identifier; ts_external_token_kDefault;
    ts_external_token_kNodefault; ts_external_token_kDispId;
    ts_external_token_kGeneric; ts_external_token_kOperator;
    ts_external_token_kPublished; ts_external_token_kPublic;
    ts_external_token_kProtected; ts_external_token_kPrivate;
    ts_external_token_kStrict; ts_external_token_kRequired;
    ts_external_token_kOptional; ts_external_token_kStatic;
    ts_external_token_kVirtual; ts_external_token_kAbstract;
    ts_external_token_kDynamic; ts_external_token_kOverride;
    ts_external_token_kOverload; ts_external_token_kReintroduce;
    ts_external_token_kStdcall; ts_external_token_kCdecl;
    ts_external_token_kCppdecl; ts_external_token_kPascal;
    ts_external_token_kRegister; ts_external_token_kMwpascal;
    ts_external_token_kMessage; ts_external_token_kDeprecated;
    ts_external_token_kExperimental; ts_external_token_kPlatform;
    ts_external_token_kUnimplemented; ts_external_token_kCvar;
    ts_external_token_kExport; ts_external_token_kFar;
    ts_external_token_kNear; ts_external_token_kSafecall;
    ts_external_token_kAssembler; ts_external_token_kNostackframe;
    ts_external_token_kInterrupt; ts_external_token_kNoreturn;
    ts_external_token_kIocheck; ts_external_token_kLocal;
    ts_external_token_kHardfloat; ts_external_token_kSoftfloat;
    ts_external_token_kMs_abi_default; ts_external_token_kMs_abi_cdecl;
    ts_external_token_kSaveregisters; ts_external_token_kSysv_abi_default;
    ts_external_token_kSysv_abi_cdecl; ts_external_token_kVectorcall;
    ts_external_token_kVarargs; ts_external_token_kWinapi;
    ts_external_token_kAlias; ts_external_token_kCase;
    ts_external_token_kClass; ts_external_token_kConst;
    ts_external_token_kConstructor; ts_external_token_kDestructor;
    ts_external_token_kEnd; ts_external_token_kFunction;
    ts_external_token_kInline; ts_external_token_kProcedure;
    ts_external_token_kProperty; ts_external_token_kResourcestring;
    ts_external_token_kThreadvar; ts_external_token_kType;
    ts_external_token_kVar]
  ].

(** States 40 to 41. *)
Definition ts_external_scanner_states_40 : list (list ts_external_token) :=
  [
   [ts_external_token_kDefault; ts_external_token_kNodefault;
    ts_external_token_kDispId; ts_external_token_kGeneric;
    ts_external_token_kOperator; ts_external_token_kPublic;
    ts_external_token_kForward; ts_external_token_kStatic;
    ts_external_token_kVirtual; ts_external_token_kAbstract;
    ts_external_token_kDynamic; ts_external_token_kOverride;
    ts_external_token_kOverload; ts_external_token_kReintroduce;
    ts_external_token_kStdcall; ts_external_token_kCdecl;
    ts_external_token_kCppdecl; ts_external_token_kPascal;
    ts_external_token_kRegister; ts_external_token_kMwpascal;
    ts_external_token_kExternal; ts_external_token_kMessage;
    ts_external_token_kDeprecated; ts_external_token_kExperimental;
    ts_external_token_kPlatform; ts_external_token_kUnimplemented;
    ts_external_token_kCvar; ts_external_token_kExport;
    ts_external_token_kFar; ts_external_token_kNear;
    ts_external_token_kSafecall; ts_external_token_kAssembler;
    ts_external_token_kNostackframe; ts_external_token_kInterrupt;
    ts_external_token_kNoreturn; ts_external_token_kIocheck;
    ts_external_token_kLocal; ts_external_token_kHardfloat;
    ts_external_token_kSoftfloat; ts_external_token_kMs_abi_default;
    ts_external_token_kMs_abi_cdecl; ts_external_token_kSaveregisters;
    ts_external_token_kSysv_abi_default; ts_external_token_kSysv_abi_cdecl;
    ts_external_token_kVectorcall; ts_external_token_kVarargs;
    ts_external_token_kWinapi; ts_external_token_kAlias;
    ts_external_token_kAsm; ts_external_token_kBegin;
    ts_external_token_kClass; ts_external_token_kConst;
    ts_external_token_kConstructor; ts_external_token_kDestructor;
    ts_external_token_kExports; ts_external_token_kFunction;
    ts_external_token_kInline; ts_external_token_kLabel;
    ts_external_token_kProcedure; ts_external_token_kResourcestring;
    ts_external_token_kThreadvar; ts_external_token_kType;
    ts_external_token_kUses; ts_external_token_kVar];
   [ts_external_token_identifier; ts_external_token_kDefault;
    ts_external_token_kNodefault; ts_external_token_kDispId;
    ts_external_token_kGeneric; ts_external_token_kOperator;
    ts_external_token_kPublic; ts_external_token_kStatic;
    ts_external_token_kVirtual; ts_external_token_kAbstract;
    ts_external_token_kDynamic; ts_external_token_kOverride;
    ts_external_token_kOverload; ts_external_token_kReintroduce;
    ts_external_token_kStdcall; ts_external_token_kCdecl;
    ts_external_token_kCppdecl; ts_external_token_kPascal;
    ts_external_token_kRegister; ts_external_token_kMwpascal;
    ts_external_token_kMessage; ts_external_token_kDeprecated;
    ts_external_token_kExperimental; ts_external_token_kPlatform;
    ts_external_token_kUnimplemented; ts_external_token_kCvar;
    ts_external_token_kExport; ts_external_token_kFar;
    ts_external_token_kNear; ts_external_token_kSafecall;
    ts_external_token_kAssembler; ts_external_token_kNostackframe;
    ts_external_token_kInterrupt; ts_external_token_kNoreturn;
    ts_external_token_kIocheck; ts_external_token_kLocal;
    ts_external_token_kHardfloat; ts_external_token_kSoftfloat;
    ts_external_token_kMs_abi_default; ts_external_token_kMs_abi_cdecl;
    ts_external_token_kSaveregisters; ts_external_token_kSysv_abi_default;
    ts_external_token_kSysv_abi_cdecl; ts_external_token_kVectorcall;
    ts_external_token_kVarargs; ts_external_token_kWinapi;
    ts_external_token_kAlias; ts_external_token_kBegin;
    ts_external_token_kClass; ts_external_token_kConst;
    ts_external_token_kConstructor; ts_external_token_kDestructor;
    ts_external_token_kEnd; ts_external_token_kExports;
    ts_external_token_kFunction; ts_external_token_kLabel;
    ts_external_token_kProcedure; ts_external_token_kResourcestring;
    ts_external_token_kThreadvar; ts_external_token_kType;
    ts_external_token_kUses; ts_external_token_kVar]
  ].

(** States 42 to 43. *)
Definition ts_external_scanner_states_42 : list (list ts_external_token) :=
  [
   [ts_external_token_identifier; ts_external_token_kDefault;
    ts_external_token_kNodefault; ts_external_token_kDispId;
    ts_external_token_kGeneric; ts_external_token_kOperator;
    ts_external_token_kPublic; ts_external_token_kStatic;
    ts_external_token_kVirtual; ts_external_token_kAbstract;
    ts_external_token_kDynamic; ts_external_token_kOverride;
    ts_external_token_kOverload; ts_external_token_kReintroduce;
    ts_external_token_kStdcall; ts_external_token_kCdecl;
    ts_external_token_kCppdecl; ts_external_token_kPascal;
    ts_external_token_kRegister; ts_external_token_kMwpascal;
    ts_external_token_kMessage; ts_external_token_kDeprecated;
    ts_external_token_kExperimental; ts_external_token_kPlatform;
    ts_external_token_kUnimplemented; ts_external_token_kCvar;
    ts_external_token_kExport; ts_external_token_kFar;
    ts_external_token_kNear; ts_external_token_kSafecall;
    ts_external_token_kAssembler; ts_external_token_kNostackframe;
    ts_external_token_kInterrupt; ts_external_token_kNoreturn;
    ts_external_token_kIocheck; ts_external_token_kLocal;
    ts_external_token_kHardfloat; ts_external_token_kSoftfloat;
    ts_external_token_kMs_abi_default; ts_external_token_kMs_abi_cdecl;
    ts_external_token_kSaveregisters; ts_external_token_kSysv_abi_default;
    ts_external_token_kSysv_abi_cdecl; ts_external_token_kVectorcall;
    ts_external_token_kVarargs; ts_external_token_kWinapi;
    ts_external_token_kAlias; ts_external_token_kBegin;
    ts_external_token_kClass; ts_external_token_kConst;
    ts_external_token_kConstructor; ts_external_token_kDestructor;
    ts_external_token_kExports; ts_external_token_kFunction;
    ts_external_token_kLabel; ts_external_token_kProcedure;
    ts_external_token_kResourcestring; ts_external_token_kThreadvar;
    ts_external_token_kType; ts_external_token_kUses; ts_external_token_kVar];
   [ts_external_token_identifier; ts_external_token_kDefault;
    ts_external_token_kNodefault; ts_external_token_kDispId;
    ts_external_token_kGeneric; ts_external_token_kOperator;
    ts_external_token_kPublic; ts_external_token_kStatic;
    ts_external_token_kVirtual; ts_external_token_kAbstract;
    ts_external_token_kDynamic; ts_external_token_kOverride;
    ts_external_token_kOverload; ts_external_token_kReintroduce;
    ts_external_token_kStdcall; ts_external_token_kCdecl;
    ts_external_token_kCppdecl; ts_external_token_kPascal;
    ts_external_token_kRegister; ts_external_token_kMwpascal;
    ts_external_token_kMessage; ts_external_token_kDeprecated;
    ts_external_token_kExperimental; ts_external_token_kPlatform;
    ts_external_token_kUnimplemented; ts_external_token_kCvar;
    ts_external_token_kExport; ts_external_token_kFar;
    ts_external_token_kNear; ts_external_token_kSafecall;
    ts_external_token_kAssembler; ts_external_token_kNostackframe;
    ts_external_token_kInterrupt; ts_external_token_kNoreturn;
    ts_external_token_kIocheck; ts_external_token_kLocal;
    ts_external_token_kHardfloat; ts_external_token_kSoftfloat;
    ts_external_token_kMs_abi_default; ts_external_token_kMs_abi_cdecl;
    ts_external_token_kSaveregisters; ts_external_token_kSysv_abi_default;
    ts_external_token_kSysv_abi_cdecl; ts_external_token_kVectorcall;
    ts_external_token_kVarargs; ts_external_token_kWinapi;
    ts_external_token_kAlias; ts_external_token_kAsm;
    ts_external_token_kBegin; ts_external_token_kClass;
    ts_external_token_kConst; ts_external_token_kConstructor;
    ts_external_token_kDestructor; ts_external_token_kExports;
    ts_external_token_kFunction; ts_external_token_kLabel;
    ts_external_token_kProcedure; ts_external_token_kResourcestring;
    ts_external_token_kThreadvar; ts_external_token_kType;
    ts_external_token_kUses; ts_external_token_kVar]
  ].

(** States 44 to 45. *)
Definition ts_external_scanner_states_44 : list (list ts_external_token) :=
  [
   [ts_external_token_identifier; ts_external_token_kGeneric;
    ts_external_token_kOperator; ts_external_token_kPublished;
    ts_external_token_kPublic; ts_external_token_kProtected;
    ts_external_token_kPrivate; ts_external_token_kStrict;
    ts_external_token_kRequired; ts_external_token_kOptional;
    ts_external_token_kAnd; ts_external_token_kAs; ts_external_token_kCase;
    ts_external_token_kClass; ts_external_token_kConst;
    ts_external_token_kConstructor; ts_external_token_kDestructor;
    ts_external_token_kDiv; ts_external_token_kEnd;
    ts_external_token_kFunction; ts_external_token_kIn; ts_external_token_kIs;
    ts_external_token_kMod; ts_external_token_kNot; ts_external_token_kOr;
    ts_external_token_kProcedure; ts_external_token_kProperty;
    ts_external_token_kResourcestring; ts_external_token_kShl;
    ts_external_token_kShr; ts_external_token_kThreadvar;
    ts_external_token_kType; ts_external_token_kVar; ts_external_token_kXor];
   [ts_external_token_kDefault; ts_external_token_kNodefault;
    ts_external_token_kDispId; ts_external_token_kGeneric;
    ts_external_token_kOperator; ts_external_token_kPublic;
    ts_external_token_kStatic; ts_external_token_kVirtual;
    ts_external_token_kAbstract; ts_external_token_kDynamic;
    ts_external_token_kOverride; ts_external_token_kOverload;
    ts_external_token_kReintroduce; ts_external_token_kStdcall;
    ts_external_token_kCdecl; ts_external_token_kCppdecl;
    ts_external_token_kPascal; ts_external_token_kRegister;
    ts_external_token_kMwpascal; ts_external_token_kMessage;
    ts_external_token_kDeprecated; ts_external_token_kExperimental;
    ts_external_token_kPlatform; ts_external_token_kUnimplemented;
    ts_external_token_kCvar; ts_external_token_kExport;
    ts_external_token_kFar; ts_external_token_kNear;
    ts_external_token_kSafecall; ts_external_token_kAssembler;
    ts_external_token_kNostackframe; ts_external_token_kInterrupt;
    ts_external_token_kNoreturn; ts_external_token_kIocheck;
    ts_external_token_kLocal; ts_external_token_kHardfloat;
    ts_external_token_kSoftfloat; ts_external_token_kMs_abi_default;
    ts_external_token_kMs_abi_cdecl; ts_external_token_kSaveregisters;
    ts_external_token_kSysv_abi_default; ts_external_token_kSysv_abi_cdecl;
    ts_external_token_kVectorcall; ts_external_token_kVarargs;
    ts_external_token_kWinapi; ts_external_token_kAlias;
    ts_external_token_kBegin; ts_external_token_kClass;
    ts_external_token_kConst; ts_external_token_kConstructor;
    ts_external_token_kDestructor; ts_external_token_kEnd;
    ts_external_token_kExports; ts_external_token_kFinalization;
    ts_external_token_kFunction; ts_external_token_kImplementation;
    ts_external_token_kInitialization; ts_external_token_kInline;
    ts_external_token_kInterface; ts_external_token_kLabel;
    ts_external_token_kProcedure; ts_external_token_kResourcestring;
    ts_external_token_kThreadvar; ts_external_token_kType;
    ts_external_token_kUses; ts_external_token_kVar]
  ].

(** States 46 to 47. *)
Definition ts_external_scanner_states_46 : list (list ts_external_token) :=
  [
   [ts_external_token_identifier; ts_external_token_kDefault;
    ts_external_token_kNodefault; ts_external_token_kDispId;
    ts_external_token_kGeneric; ts_external_token_kOperator;
    ts_external_token_kPublic; ts_external_token_kStatic;
    ts_external_token_kVirtual; ts_external_token_kAbstract;
    ts_external_token_kDynamic; ts_external_token_kOverride;
    ts_external_token_kOverload; ts_external_token_kReintroduce;
    ts_external_token_kStdcall; ts_external_token_kCdecl;
    ts_external_token_kCppdecl; ts_external_token_kPascal;
    ts_external_token_kRegister; ts_external_token_kMwpascal;
    ts_external_token_kExternal; ts_external_token_kMessage;
    ts_external_token_kDeprecated; ts_external_token_kExperimental;
    ts_external_token_kPlatform; ts_external_token_kUnimplemented;
    ts_external_token_kCvar; ts_external_token_kExport;
    ts_external_token_kFar; ts_external_token_kNear;
    ts_external_token_kSafecall; ts_external_token_kAssembler;
    ts_external_token_kNostackframe; ts_external_token_kInterrupt;
    ts_external_token_kNoreturn; ts_external_token_kIocheck;
    ts_external_token_kLocal; ts_external_token_kHardfloat;
    ts_external_token_kSoftfloat; ts_external_token_kMs_abi_default;
    ts_external_token_kMs_abi_cdecl; ts_external_token_kSaveregisters;
    ts_external_token_kSysv_abi_default; ts_external_token_kSysv_abi_cdecl;
    ts_external_token_kVectorcall; ts_external_token_kVarargs;
    ts_external_token_kWinapi; ts_external_token_kAlias;
    ts_external_token_kBegin; ts_external_token_kClass;
    ts_external_token_kConst; ts_external_token_kConstructor;
    ts_external_token_kDestructor; ts_external_token_kEnd;
    ts_external_token_kExports; ts_external_token_kFunction;
    ts_external_token_kInline; ts_external_token_kLabel;
    ts_external_token_kProcedure; ts_external_token_kResourcestring;
    ts_external_token_kThreadvar; ts_external_token_kType;
    ts_external_token_kUses; ts_external_token_kVar];
   [ts_external_token_identifier; ts_external_token_kDefault;
    ts_external_token_kNodefault; ts_external_token_kDispId;
    ts_external_token_kGeneric; ts_external_token_kOperator;
    ts_external_token_kPublic; ts_external_token_kStatic;
    ts_external_token_kVirtual; ts_external_token_kAbstract;
    ts_external_token_kDynamic; ts_external_token_kOverride;
    ts_external_token_kOverload; ts_external_token_kReintroduce;
    ts_external_token_kStdcall; ts_external_token_kCdecl;
    ts_external_token_kCppdecl; ts_external_token_kPascal;
    ts_external_token_kRegister; ts_external_token_kMwpascal;
    ts_external_token_kExternal; ts_external_token_kMessage;
    ts_external_token_kDeprecated; ts_external_token_kExperimental;
    ts_external_token_kPlatform; ts_external_token_kUnimplemented;
    ts_external_token_kCvar; ts_external_token_kExport;
    ts_external_token_kFar; ts_external_token_kNear;
    ts_external_token_kSafecall; ts_external_token_kAssembler;
    ts_external_token_kNostackframe; ts_external_token_kInterrupt;
    ts_external_token_kNoreturn; ts_external_token_kIocheck;
    ts_external_token_kLocal; ts_external_token_kHardfloat;
    ts_external_token_kSoftfloat; ts_external_token_kMs_abi_default;
    ts_external_token_kMs_abi_cdecl; ts_external_token_kSaveregisters;
    ts_external_token_kSysv_abi_default; ts_external_token_kSysv_abi_cdecl;
    ts_external_token_kVectorcall; ts_external_token_kVarargs;
    ts_external_token_kWinapi; ts_external_token_kAlias;
    ts_external_token_kAsm; ts_external_token_kBegin;
    ts_external_token_kClass; ts_external_token_kConst;
    ts_external_token_kConstructor; ts_external_token_kDestructor;
    ts_external_token_kExports; ts_external_token_kFunction;
    ts_external_token_kInline; ts_external_token_kLabel;
    ts_external_token_kProcedure; ts_external_token_kResourcestring;
    ts_external_token_kThreadvar; ts_external_token_kType;
    ts_external_token_kUses; ts_external_token_kVar]
  ].

(** States 48 to 49. *)
Definition ts_external_scanner_states_48 : list (list ts_external_token) :=
  [
   [ts_external_token_identifier; ts_external_token_kDefault;
    ts_external_token_kNodefault; ts_external_token_kDispId;
    ts_external_token_kGeneric; ts_external_token_kOperator;
    ts_external_token_kPublic; ts_external_token_kStatic;
    ts_external_token_kVirtual; ts_external_token_kAbstract;
    ts_external_token_kDynamic; ts_external_token_kOverride;
    ts_external_token_kOverload; ts_external_token_kReintroduce;
    ts_external_token_kStdcall; ts_external_token_kCdecl;
    ts_external_token_kCppdecl; ts_external_token_kPascal;
    ts_external_token_kRegister; ts_external_token_kMwpascal;
    ts_external_token_kExternal; ts_external_token_kMessage;
    ts_external_token_kDeprecated; ts_external_token_kExperimental;
    ts_external_token_kPlatform; ts_external_token_kUnimplemented;
    ts_external_token_kCvar; ts_external_token_kExport;
    ts_external_token_kFar; ts_external_token_kNear;
    ts_external_token_kSafecall; ts_external_token_kAssembler;
    ts_external_token_kNostackframe; ts_external_token_kInterrupt;
    ts_external_token_kNoreturn; ts_external_token_kIocheck;
    ts_external_token_kLocal; ts_external_token_kHardfloat;
    ts_external_token_kSoftfloat; ts_external_token_kMs_abi_default;
    ts_external_token_kMs_abi_cdecl; ts_external_token_kSaveregisters;
    ts_external_token_kSysv_abi_default; ts_external_token_kSysv_abi_cdecl;
    ts_external_token_kVectorcall; ts_external_token_kVarargs;
    ts_external_token_kWinapi; ts_external_token_kAlias;
    ts_external_token_kBegin; ts_external_token_kClass;
    ts_external_token_kConst; ts_external_token_kConstructor;
    ts_external_token_kDestructor; ts_external_token_kExports;
    ts_external_token_kFunction; ts_external_token_kInline;
    ts_external_token_kLabel; ts_external_token_kProcedure;
    ts_external_token_kResourcestring; ts_external_token_kThreadvar;
    ts_external_token_kType; ts_external_token_kUses; ts_external_token_kVar];
   [ts_external_token_kDefault; ts_external_token_kNodefault;
    ts_external_token_kDispId; ts_external_token_kGeneric;
    ts_external_token_kOperator; ts_external_token_kPublic;
    ts_external_token_kStatic; ts_external_token_kVirtual;
    ts_external_token_kAbstract; ts_external_token_kDynamic;
    ts_external_token_kOverride; ts_external_token_kOverload;
    ts_external_token_kReintroduce; ts_external_token_kStdcall;
    ts_external_token_kCdecl; ts_external_token_kCppdecl;
    ts_external_token_kPascal; ts_external_token_kRegister;
    ts_external_token_kMwpascal; ts_external_token_kMessage;
    ts_external_token_kDeprecated; ts_external_token_kExperimental;
    ts_external_token_kPlatform; ts_external_token_kUnimplemented;
    ts_external_token_kCvar; ts_external_token_kExport;
    ts_external_token_kFar; ts_external_token_kNear;
    ts_external_token_kSafecall; ts_external_token_kAssembler;
    ts_external_token_kNostackframe; ts_external_token_kInterrupt;
    ts_external_token_kNoreturn; ts_external_token_kIocheck;
    ts_external_token_kLocal; ts_external_token_kHardfloat;
    ts_external_token_kSoftfloat; ts_external_token_kMs_abi_default;
    ts_external_token_kMs_abi_cdecl; ts_external_token_kSaveregisters;
    ts_external_token_kSysv_abi_default; ts_external_token_kSysv_abi_cdecl;
    ts_external_token_kVectorcall; ts_external_token_kVarargs;
    ts_external_token_kWinapi; ts_external_token_kAlias;
    ts_external_token_kAsm; ts_external_token_kBegin;
    ts_external_token_kClass; ts_external_token_kConst;
    ts_external_token_kConstructor; ts_external_token_kDestructor;
    ts_external_token_kExports; ts_external_token_kFunction;
    ts_external_token_kInline; ts_external_token_kLabel;
    ts_external_token_kProcedure; ts_external_token_kResourcestring;
    ts_external_token_kThreadvar; ts_external_token_kType;
    ts_external_token_kUses; ts_external_token_kVar]
  ].

(** States 50 to 51. *)
Definition ts_external_scanner_states_50 : list (list ts_external_token) :=
  [
   [ts_external_token_identifier; ts_external_token_kDefault;
    ts_external_token_kNodefault; ts_external_token_kDispId;
    ts_external_token_kGeneric; ts_external_token_kOperator;
    ts_external_token_kPublic; ts_external_token_kStatic;
    ts_external_token_kVirtual; ts_external_token_kAbstract;
    ts_external_token_kDynamic; ts_external_token_kOverride;
    ts_external_token_kOverload; ts_external_token_kReintroduce;
    ts_external_token_kStdcall; ts_external_token_kCdecl;
    ts_external_token_kCppdecl; ts_external_token_kPascal;
    ts_external_token_kRegister; ts_external_token_kMwpascal;
    ts_external_token_kMessage; ts_external_token_kDeprecated;
    ts_external_token_kExperimental; ts_external_token_kPlatform;
    ts_external_token_kUnimplemented; ts_external_token_kCvar;
    ts_external_token_kExport; ts_external_token_kFar;
    ts_external_token_kNear; ts_external_token_kSafecall;
    ts_external_token_kAssembler; ts_external_token_kNostackframe;
    ts_external_token_kInterrupt; ts_external_token_kNoreturn;
    ts_external_token_kIocheck; ts_external_token_kLocal;
    ts_external_token_kHardfloat; ts_external_token_kSoftfloat;
    ts_external_token_kMs_abi_default; ts_external_token_kMs_abi_cdecl;
    ts_external_token_kSaveregisters; ts_external_token_kSysv_abi_default;
    ts_external_token_kSysv_abi_cdecl; ts_external_token_kVectorcall;
    ts_external_token_kVarargs; ts_external_token_kWinapi;
    ts_external_token_kAlias; ts_external_token_kAsm;
    ts_external_token_kBegin; ts_external_token_kClass;
    ts_external_token_kConst; ts_external_token_kConstructor;
    ts_external_token_kDestructor; ts_external_token_kExports;
    ts_external_token_kFunction; ts_external_token_kInline;
    ts_external_token_kLabel; ts_external_token_kProcedure;
    ts_external_token_kResourcestring; ts_external_token_kThreadvar;
    ts_external_token_kType; ts_external_token_kUses; ts_external_token_kVar];
   [ts_external_token_identifier; ts_external_token_kDefault;
    ts_external_token_kNodefault; ts_external_token_kDispId;
    ts_external_token_kGeneric; ts_external_token_kOperator;
    ts_external_token_kPublic; ts_external_token_kStatic;
    ts_external_token_kVirtual; ts_external_token_kAbstract;
    ts_external_token_kDynamic; ts_external_token_kOverride;
    ts_external_token_kOverload; ts_external_token_kReintroduce;
    ts_external_token_kStdcall; ts_external_token_kCdecl;
    ts_external_token_kCppdecl; ts_external_token_kPascal;
    ts_external_token_kRegister; ts_external_token_kMwpascal;
    ts_external_token_kMessage; ts_external_token_kDeprecated;
    ts_external_token_kExperimental; ts_external_token_kPlatform;
    ts_external_token_kUnimplemented; ts_external_token_kCvar;
    ts_external_token_kExport; ts_external_token_kFar;
    ts_external_token_kNear; ts_external_token_kSafecall;
    ts_external_token_kAssembler; ts_external_token_kNostackframe;
    ts_external_token_kInterrupt; ts_external_token_kNoreturn;
    ts_external_token_kIocheck; ts_external_token_kLocal;
    ts_external_token_kHardfloat; ts_external_token_kSoftfloat;
    ts_external_token_kMs_abi_default; ts_external_token_kMs_abi_cdecl;
    ts_external_token_kSaveregisters; ts_external_token_kSysv_abi_default;
    ts_external_token_kSysv_abi_cdecl; ts_external_token_kVectorcall;
    ts_external_token_kVarargs; ts_external_token_kWinapi;
    ts_external_token_kAlias; ts_external_token_kBegin;
    ts_external_token_kClass; ts_external_token_kConst;
    ts_external_token_kConstructor; ts_external_token_kDestructor;
    ts_external_token_kExports; ts_external_token_kFunction;
    ts_external_token_kInline; ts_external_token_kLabel;
    ts_external_token_kProcedure; ts_external_token_kResourcestring;
    ts_external_token_kThreadvar; ts_external_token_kType;
    ts_external_token_kUses; ts_external_token_kVar]
  ].

(** States 52 to 53. *)
Definition ts_external_scanner_states_52 : list (list ts_external_token) :=
  [
   [ts_external_token_identifier; ts_external_token_kDefault;
    ts_external_token_kNodefault; ts_external_token_kDispId;
    ts_external_token_kGeneric; ts_external_token_kOperator;
    ts_external_token_kPublic; ts_external_token_kStatic;
    ts_external_token_kVirtual; ts_external_token_kAbstract;
    ts_external_token_kDynamic; ts_external_token_kOverride;
    ts_external_token_kOverload; ts_external_token_kReintroduce;
    ts_external_token_kStdcall; ts_external_token_kCdecl;
    ts_external_token_kCppdecl; ts_external_token_kPascal;
    ts_external_token_kRegister; ts_external_token_kMwpascal;
    ts_external_token_kMessage; ts_external_token_kDeprecated;
    ts_external_token_kExperimental; ts_external_token_kPlatform;
    ts_external_token_kUnimplemented; ts_external_token_kCvar;
    ts_external_token_kExport; ts_external_token_kFar;
    ts_external_token_kNear; ts_external_token_kSafecall;
    ts_external_token_kAssembler; ts_external_token_kNostackframe;
    ts_external_token_kInterrupt; ts_external_token_kNoreturn;
    ts_external_token_kIocheck; ts_external_token_kLocal;
    ts_external_token_kHardfloat; ts_external_token_kSoftfloat;
    ts_external_token_kMs_abi_default; ts_external_token_kMs_abi_cdecl;
    ts_external_token_kSaveregisters; ts_external_token_kSysv_abi_default;
    ts_external_token_kSysv_abi_cdecl; ts_external_token_kVectorcall;
    ts_external_token_kVarargs; ts_external_token_kWinapi;
    ts_external_token_kAlias; ts_external_token_kBegin;
    ts_external_token_kClass; ts_external_token_kConst;
    ts_external_token_kConstructor; ts_external_token_kDestructor;
    ts_external_token_kEnd; ts_external_token_kExports;
    ts_external_token_kFunction; ts_external_token_kInline;
    ts_external_token_kLabel; ts_external_token_kProcedure;
    ts_external_token_kResourcestring; ts_external_token_kThreadvar;
    ts_external_token_kType; ts_external_token_kUses; ts_external_token_kVar];
   [ts_external_token_ppFragmentExpr;
    ts_external_token__literalStringMultiline; ts_external_token_identifier;
    ts_external_token_kGeneric; ts_external_token_kSpecialize;
    ts_external_token_kOperator; ts_external_token_kPublished;
    ts_external_token_kPublic; ts_external_token_kProtected;
    ts_external_token_kPrivate; ts_external_token_kStrict;
    ts_external_token_kRequired; ts_external_token_kOptional;
    ts_external_token_kTrue; ts_external_token_kFalse;
    ts_external_token_kCase; ts_external_token_kClass;
    ts_external_token_kConst; ts_external_token_kConstructor;
    ts_external_token_kDestructor; ts_external_token_kEnd;
    ts_external_token_kFunction; ts_external_token_kIf;
    ts_external_token_kInherited; ts_external_token_kNil;
    ts_external_token_kNot; ts_external_token_kProcedure;
    ts_external_token_kProperty; ts_external_token_kResourcestring;
    ts_external_token_kString; ts_external_token_kThreadvar;
    ts_external_token_kType; ts_external_token_kVar]
  ].

(** States 54 to 55. *)
Definition ts_external_scanner_states_54 : list (list ts_external_token) :=
  [
   [ts_external_token_kDefault; ts_external_token_kNodefault;
    ts_external_token_kDispId; ts_external_token_kGeneric;
    ts_external_token_kOperator; ts_external_token_kPublic;
    ts_external_token_kStatic; ts_external_token_kVirtual;
    ts_external_token_kAbstract; ts_external_token_kDynamic;
    ts_external_token_kOverride; ts_external_token_kOverload;
    ts_external_token_kReintroduce; ts_external_token_kStdcall;
    ts_external_token_kCdecl; ts_external_token_kCppdecl;
    ts_external_token_kPascal; ts_external_token_kRegister;
    ts_external_token_kMwpascal; ts_external_token_kMessage;
    ts_external_token_kDeprecated; ts_external_token_kExperimental;
    ts_external_token_kPlatform; ts_external_token_kUnimplemented;
    ts_external_token_kCvar; ts_external_token_kExport;
    ts_external_token_kFar; ts_external_token_kNear;
    ts_external_token_kSafecall; ts_external_token_kAssembler;
    ts_external_token_kNostackframe; ts_external_token_kInterrupt;
    ts_external_token_kNoreturn; ts_external_token_kIocheck;
    ts_external_token_kLocal; ts_external_token_kHardfloat;
    ts_external_token_kSoftfloat; ts_external_token_kMs_abi_default;
    ts_external_token_kMs_abi_cdecl; ts_external_token_kSaveregisters;
    ts_external_token_kSysv_abi_default; ts_external_token_kSysv_abi_cdecl;
    ts_external_token_kVectorcall; ts_external_token_kVarargs;
    ts_external_token_kWinapi; ts_external_token_kAlias;
    ts_external_token_kBegin; ts_external_token_kClass;
    ts_external_token_kConst; ts_external_token_kConstructor;
    ts_external_token_kDestructor; ts_external_token_kExports;
    ts_external_token_kFunction; ts_external_token_kInline;
    ts_external_token_kLabel; ts_external_token_kProcedure;
    ts_external_token_kResourcestring; ts_external_token_kThreadvar;
    ts_external_token_kType; ts_external_token_kUses; ts_external_token_kVar];
   [ts_external_token_kDefault; ts_external_token_kNodefault;
    ts_external_token_kDispId; ts_external_token_kGeneric;
    ts_external_token_kOperator; ts_external_token_kPublic;
    ts_external_token_kStatic; ts_external_token_kVirtual;
    ts_external_token_kAbstract; ts_external_token_kDynamic;
    ts_external_token_kOverride; ts_external_token_kOverload;
    ts_external_token_kReintroduce; ts_external_token_kStdcall;
    ts_external_token_kCdecl; ts_external_token_kCppdecl;
    ts_external_token_kPascal; ts_external_token_kRegister;
    ts_external_token_kMwpascal; ts_external_token_kMessage;
    ts_external_token_kDeprecated; ts_external_token_kExperimental;
    ts_external_token_kPlatform; ts_external_token_kUnimplemented;
    ts_external_token_kCvar; ts_external_token_kExport;
    ts_external_token_kFar; ts_external_token_kNear;
    ts_external_token_kSafecall; ts_external_token_kAssembler;
    ts_external_token_kNostackframe; ts_external_token_kInterrupt;
    ts_external_token_kNoreturn; ts_external_token_kIocheck;
    ts_external_token_kLocal; ts_external_token_kHardfloat;
    ts_external_token_kSoftfloat; ts_external_token_kMs_abi_default;
    ts_external_token_kMs_abi_cdecl; ts_external_token_kSaveregisters;
    ts_external_token_kSysv_abi_default; ts_external_token_kSysv_abi_cdecl;
    ts_external_token_kVectorcall; ts_external_token_kVarargs;
    ts_external_token_kWinapi; ts_external_token_kAlias;
    ts_external_token_kBegin; ts_external_token_kClass;
    ts_external_token_kConst; ts_external_token_kConstructor;
    ts_external_token_kDestructor; ts_external_token_kEnd;
    ts_external_token_kExports; ts_external_token_kFunction;
    ts_external_token_kInline; ts_external_token_kLabel;
    ts_external_token_kProcedure; ts_external_token_kResourcestring;
    ts_external_token_kThreadvar; ts_external_token_kType;
    ts_external_token_kUses; ts_external_token_kVar]
  ].

(** States 56 to 60. *)
Definition ts_external_scanner_states_56 : list (list ts_external_token) :=
  [
   [ts_external_token_ppFragmentExpr;
    ts_external_token__literalStringMultiline; ts_external_token_identifier;
    ts_external_token_kGeneric; ts_external_token_kSpecialize;
    ts_external_token_kOperator; ts_external_token_kTrue;
    ts_external_token_kFalse; ts_external_token_kAsm;
    ts_external_token_kBegin; ts_external_token_kClass;
    ts_external_token_kConst; ts_external_token_kConstructor;
    ts_external_token_kDestructor; ts_external_token_kExports;
    ts_external_token_kFunction; ts_external_token_kIf;
    ts_external_token_kInherited; ts_external_token_kLabel;
    ts_external_token_kNil; ts_external_token_kNot;
    ts_external_token_kProcedure; ts_external_token_kResourcestring;
    ts_external_token_kString; ts_external_token_kThreadvar;
    ts_external_token_kType; ts_external_token_kUses; ts_external_token_kVar];
   [ts_external_token_ppFragmentExpr;
    ts_external_token__literalStringMultiline; ts_external_token_identifier;
    ts_external_token_kObjcclass; ts_external_token_kObjccategory;
    ts_external_token_kObjcprotocol; ts_external_token_kSpecialize;
    ts_external_token_kReference; ts_external_token_kArray;
    ts_external_token_kClass; ts_external_token_kDispInterface;
    ts_external_token_kFile; ts_external_token_kFunction;
    ts_external_token_kInterface; ts_external_token_kObject;
    ts_external_token_kPacked; ts_external_token_kProcedure;
    ts_external_token_kRecord; ts_external_token_kSet;
    ts_external_token_kString; ts_external_token_kType];
   [ts_external_token_identifier; ts_external_token_kDefault;
    ts_external_token_kNodefault; ts_external_token_kDispId;
    ts_external_token_kGeneric; ts_external_token_kOperator;
    ts_external_token_kPublic; ts_external_token_kStatic;
    ts_external_token_kVirtual; ts_external_token_kAbstract;
    ts_external_token_kDynamic; ts_external_token_kOverride;
    ts_external_token_kOverload; ts_external_token_kReintroduce;
    ts_external_token_kStdcall; ts_external_token_kCdecl;
    ts_external_token_kCppdecl; ts_external_token_kPascal;
    ts_external_token_kRegister; ts_external_token_kMwpascal;
    ts_external_token_kMessage; ts_external_token_kDeprecated;
    ts_external_token_kExperimental; ts_external_token_kPlatform;
    ts_external_token_kUnimplemented; ts_external_token_kCvar;
    ts_external_token_kExport; ts_external_token_kFar;
    ts_external_token_kNear; ts_external_token_kSafecall;
    ts_external_token_kAssembler; ts_external_token_kNostackframe;
    ts_external_token_kInterrupt; ts_external_token_kNoreturn;
    ts_external_token_kIocheck; ts_external_token_kLocal;
    ts_external_token_kHardfloat; ts_external_token_kSoftfloat;
    ts_external_token_kMs_abi_default; ts_external_token_kMs_abi_cdecl;
    ts_external_token_kSaveregisters; ts_external_token_kSysv_abi_default;
    ts_external_token_kSysv_abi_cdecl; ts_external_token_kVectorcall;
    ts_external_token_kVarargs; ts_external_token_kWinapi;
    ts_external_token_kAlias; ts_external_token_kClass;
    ts_external_token_kConstructor; ts_external_token_kDestructor;
    ts_external_token_kFunction; ts_external_token_kProcedure;
    ts_external_token_kProperty];
   [ts_external_token_ppFragmentExpr;
    ts_external_token__literalStringMultiline; ts_external_token_identifier;
    ts_external_token_kSpecialize; ts_external_token_kTrue;
    ts_external_token_kFalse; ts_external_token_kElse; ts_external_token_kEnd;
    ts_external_token_kFinalization; ts_external_token_kFunction;
    ts_external_token_kIf; ts_external_token_kImplementation;
    ts_external_token_kInherited; ts_external_token_kInitialization;
    ts_external_token_kInterface; ts_external_token_kNil;
    ts_external_token_kNot; ts_external_token_kProcedure;
    ts_external_token_kString];
   [ts_external_token_ppFragmentExpr;
    ts_external_token__literalStringMultiline; ts_external_token_identifier;
    ts_external_token_kSpecialize; ts_external_token_kTrue;
    ts_external_token_kFalse; ts_external_token_kEnd;
    ts_external_token_kFinalization; ts_external_token_kFunction;
    ts_external_token_kIf; ts_external_token_kImplementation;
    ts_external_token_kInherited; ts_external_token_kInitialization;
    ts_external_token_kInterface; ts_external_token_kNil;
    ts_external_token_kNot; ts_external_token_kProcedure;
    ts_external_token_kString]
  ].

(** States 61 to 65. *)
Definition ts_external_scanner_states_61 : list (list ts_external_token) :=
  [
   [ts_external_token_ppFragmentExpr;
    ts_external_token__literalStringMultiline; ts_external_token_identifier;
    ts_external_token_kRead; ts_external_token_kWrite;
    ts_external_token_kImplements; ts_external_token_kDefault;
    ts_external_token_kNodefault; ts_external_token_kStored;
    ts_external_token_kIndex; ts_external_token_kDispId;
    ts_external_token_kSpecialize; ts_external_token_kTrue;
    ts_external_token_kFalse; ts_external_token_kFunction;
    ts_external_token_kIf; ts_external_token_kInherited;
    ts_external_token_kNil; ts_external_token_kNot; ts_external_token_kOf;
    ts_external_token_kProcedure; ts_external_token_kString];
   [ts_external_token_ppFragmentExpr;
    ts_external_token__literalStringMultiline; ts_external_token_identifier;
    ts_external_token_kRead; ts_external_token_kWrite;
    ts_external_token_kImplements; ts_external_token_kDefault;
    ts_external_token_kNodefault; ts_external_token_kStored;
    ts_external_token_kIndex; ts_external_token_kDispId;
    ts_external_token_kSpecialize; ts_external_token_kTrue;
    ts_external_token_kFalse; ts_external_token_kFunction;
    ts_external_token_kIf; ts_external_token_kInherited;
    ts_external_token_kNil; ts_external_token_kNot;
    ts_external_token_kProcedure; ts_external_token_kString];
   [ts_external_token_ppFragmentExpr;
    ts_external_token__literalStringMultiline; ts_external_token_identifier;
    ts_external_token_kSpecialize; ts_external_token_kOtherwise;
    ts_external_token_kTrue; ts_external_token_kFalse;
    ts_external_token_kElse; ts_external_token_kEnd;
    ts_external_token_kFunction; ts_external_token_kIf;
    ts_external_token_kInherited; ts_external_token_kNil;
    ts_external_token_kNot; ts_external_token_kProcedure;
    ts_external_token_kString];
   [ts_external_token_ppFragmentExpr;
    ts_external_token__literalStringMultiline; ts_external_token_identifier;
    ts_external_token_kSpecialize; ts_external_token_kTrue;
    ts_external_token_kFalse; ts_external_token_kElse;
    ts_external_token_kExcept; ts_external_token_kFinally;
    ts_external_token_kFunction; ts_external_token_kIf;
    ts_external_token_kInherited; ts_external_token_kNil;
    ts_external_token_kNot; ts_external_token_kProcedure;
    ts_external_token_kString];
   [ts_external_token__literalStringMultiline; ts_external_token_identifier;
    ts_external_token_kGeneric; ts_external_token_kOperator;
    ts_external_token_kPublished; ts_external_token_kPublic;
    ts_external_token_kProtected; ts_external_token_kPrivate;
    ts_external_token_kStrict; ts_external_token_kRequired;
    ts_external_token_kOptional; ts_external_token_kAnd;
    ts_external_token_kAs; ts_external_token_kCase; ts_external_token_kClass;
    ts_external_token_kConst; ts_external_token_kConstructor;
    ts_external_token_kDestructor; ts_external_token_kDiv;
    ts_external_token_kEnd; ts_external_token_kFunction;
    ts_external_token_kIn; ts_external_token_kIs; ts_external_token_kMod;
    ts_external_token_kNot; ts_external_token_kOr;
    ts_external_token_kProcedure; ts_external_token_kProperty;
    ts_external_token_kResourcestring; ts_external_token_kShl;
    ts_external_token_kShr; ts_external_token_kThreadvar;
    ts_external_token_kType; ts_external_token_kVar; ts_external_token_kXor]
  ].

(** States 66 to 69. *)
Definition ts_external_scanner_states_66 : list (list ts_external_token) :=
  [
   [ts_external_token_identifier; ts_external_token_kGeneric;
    ts_external_token_kOperator; ts_external_token_kPublished;
    ts_external_token_kPublic; ts_external_token_kProtected;
    ts_external_token_kPrivate; ts_external_token_kStrict;
    ts_external_token_kRequired; ts_external_token_kOptional;
    ts_external_token_kAnd; ts_external_token_kAs; ts_external_token_kAsm;
    ts_external_token_kBegin; ts_external_token_kCase;
    ts_external_token_kClass; ts_external_token_kConst;
    ts_external_token_kConstructor; ts_external_token_kDestructor;
    ts_external_token_kDiv; ts_external_token_kEnd;
    ts_external_token_kExports; ts_external_token_kFunction;
    ts_external_token_kIn; ts_external_token_kIs; ts_external_token_kLabel;
    ts_external_token_kMod; ts_external_token_kNot; ts_external_token_kOr;
    ts_external_token_kProcedure; ts_external_token_kProperty;
    ts_external_token_kResourcestring; ts_external_token_kShl;
    ts_external_token_kShr; ts_external_token_kThreadvar;
    ts_external_token_kType; ts_external_token_kUses; ts_external_token_kVar;
    ts_external_token_kXor];
   [ts_external_token_ppFragmentExpr;
    ts_external_token__literalStringMultiline; ts_external_token_identifier;
    ts_external_token_kSpecialize; ts_external_token_kTrue;
    ts_external_token_kFalse; ts_external_token_kExcept;
    ts_external_token_kFinally; ts_external_token_kFunction;
    ts_external_token_kIf; ts_external_token_kInherited;
    ts_external_token_kNil; ts_external_token_kNot;
    ts_external_token_kProcedure; ts_external_token_kString];
   [ts_external_token_ppFragmentExpr;
    ts_external_token__literalStringMultiline; ts_external_token_identifier;
    ts_external_token_kSpecialize; ts_external_token_kReference;
    ts_external_token_kArray; ts_external_token_kClass;
    ts_external_token_kConst; ts_external_token_kFile;
    ts_external_token_kFunction; ts_external_token_kPacked;
    ts_external_token_kProcedure; ts_external_token_kRecord;
    ts_external_token_kSet; ts_external_token_kString];
   [ts_external_token_kDefault; ts_external_token_kNodefault;
    ts_external_token_kDispId; ts_external_token_kPublic;
    ts_external_token_kStatic; ts_external_token_kVirtual;
    ts_external_token_kAbstract; ts_external_token_kDynamic;
    ts_external_token_kOverride; ts_external_token_kOverload;
    ts_external_token_kReintroduce; ts_external_token_kStdcall;
    ts_external_token_kCdecl; ts_external_token_kCppdecl;
    ts_external_token_kPascal; ts_external_token_kRegister;
    ts_external_token_kMwpascal; ts_external_token_kMessage;
    ts_external_token_kDeprecated; ts_external_token_kExperimental;
    ts_external_token_kPlatform; ts_external_token_kUnimplemented;
    ts_external_token_kCvar; ts_external_token_kExport;
    ts_external_token_kFar; ts_external_token_kNear;
    ts_external_token_kSafecall; ts_external_token_kAssembler;
    ts_external_token_kNostackframe; ts_external_token_kInterrupt;
    ts_external_token_kNoreturn; ts_external_token_kIocheck;
    ts_external_token_kLocal; ts_external_token_kHardfloat;
    ts_external_token_kSoftfloat; ts_external_token_kMs_abi_default;
    ts_external_token_kMs_abi_cdecl; ts_external_token_kSaveregisters;
    ts_external_token_kSysv_abi_default; ts_external_token_kSysv_abi_cdecl;
    ts_external_token_kVectorcall; ts_external_token_kVarargs;
    ts_external_token_kWinapi; ts_external_token_kAlias;
    ts_external_token_kInline]
  ].

(** States 70 to 75. *)
Definition ts_external_scanner_states_70 : list (list ts_external_token) :=
  [
   [ts_external_token_kGeneric; ts_external_token_kOperator;
    ts_external_token_kAnd; ts_external_token_kAs; ts_external_token_kAsm;
    ts_external_token_kBegin; ts_external_token_kClass;
    ts_external_token_kConst; ts_external_token_kConstructor;
    ts_external_token_kDestructor; ts_external_token_kDiv;
    ts_external_token_kElse; ts_external_token_kEnd;
    ts_external_token_kExports; ts_external_token_kFinalization;
    ts_external_token_kFunction; ts_external_token_kImplementation;
    ts_external_token_kIn; ts_external_token_kInitialization;
    ts_external_token_kInterface; ts_external_token_kIs;
    ts_external_token_kLabel; ts_external_token_kMod; ts_external_token_kNot;
    ts_external_token_kOr; ts_external_token_kProcedure;
    ts_external_token_kResourcestring; ts_external_token_kShl;
    ts_external_token_kShr; ts_external_token_kThreadvar;
    ts_external_token_kType; ts_external_token_kUses; ts_external_token_kVar;
    ts_external_token_kXor];
   [ts_external_token_ppFragmentExpr;
    ts_external_token__literalStringMultiline; ts_external_token_identifier;
    ts_external_token_kAbsolute; ts_external_token_kSpecialize;
    ts_external_token_kTrue; ts_external_token_kFalse;
    ts_external_token_kFunction; ts_external_token_kIf;
    ts_external_token_kInherited; ts_external_token_kNil;
    ts_external_token_kNot; ts_external_token_kProcedure;
    ts_external_token_kString];
   [ts_external_token_ppFragmentExpr;
    ts_external_token__literalStringMultiline; ts_external_token_identifier;
    ts_external_token_kSpecialize; ts_external_token_kTrue;
    ts_external_token_kFalse; ts_external_token_kElse;
    ts_external_token_kFunction; ts_external_token_kIf;
    ts_external_token_kInherited; ts_external_token_kNil;
    ts_external_token_kNot; ts_external_token_kProcedure;
    ts_external_token_kString; ts_external_token_kUntil];
   [ts_external_token_ppFragmentExpr;
    ts_external_token__literalStringMultiline; ts_external_token_identifier;
    ts_external_token_kSpecialize; ts_external_token_kTrue;
    ts_external_token_kFalse; ts_external_token_kElse; ts_external_token_kEnd;
    ts_external_token_kFunction; ts_external_token_kIf;
    ts_external_token_kInherited; ts_external_token_kNil;
    ts_external_token_kNot; ts_external_token_kProcedure;
    ts_external_token_kString];
   [ts_external_token_kGeneric; ts_external_token_kOperator;
    ts_external_token_kAnd; ts_external_token_kAs; ts_external_token_kAsm;
    ts_external_token_kBegin; ts_external_token_kClass;
    ts_external_token_kConst; ts_external_token_kConstructor;
    ts_external_token_kDestructor; ts_external_token_kDiv;
    ts_external_token_kEnd; ts_external_token_kExports;
    ts_external_token_kFinalization; ts_external_token_kFunction;
    ts_external_token_kImplementation; ts_external_token_kIn;
    ts_external_token_kInitialization; ts_external_token_kInterface;
    ts_external_token_kIs; ts_external_token_kLabel; ts_external_token_kMod;
    ts_external_token_kNot; ts_external_token_kOr;
    ts_external_token_kProcedure; ts_external_token_kResourcestring;
    ts_external_token_kShl; ts_external_token_kShr;
    ts_external_token_kThreadvar; ts_external_token_kType;
    ts_external_token_kUses; ts_external_token_kVar; ts_external_token_kXor];
   [ts_external_token_ppFragmentExpr;
    ts_external_token__literalStringMultiline; ts_external_token_identifier;
    ts_external_token_kSpecialize; ts_external_token_kTrue;
    ts_external_token_kFalse; ts_external_token_kFunction;
    ts_external_token_kIf; ts_external_token_kInherited;
    ts_external_token_kNil; ts_external_token_kNot;
    ts_external_token_kProcedure; ts_external_token_kString;
    ts_external_token_kUntil]
  ].

(** States 76 to 81. *)
Definition ts_external_scanner_states_76 : list (list ts_external_token) :=
  [
   [ts_external_token_ppFragmentExpr;
    ts_external_token__literalStringMultiline; ts_external_token_identifier;
    ts_external_token_kSpecialize; ts_external_token_kTrue;
    ts_external_token_kFalse; ts_external_token_kElse;
    ts_external_token_kFunction; ts_external_token_kIf;
    ts_external_token_kInherited; ts_external_token_kNil;
    ts_external_token_kNot; ts_external_token_kProcedure;
    ts_external_token_kString];
   [ts_external_token_ppFragmentExpr;
    ts_external_token__literalStringMultiline; ts_external_token_identifier;
    ts_external_token_kSpecialize; ts_external_token_kTrue;
    ts_external_token_kFalse; ts_external_token_kEnd;
    ts_external_token_kFunction; ts_external_token_kIf;
    ts_external_token_kInherited; ts_external_token_kNil;
    ts_external_token_kNot; ts_external_token_kProcedure;
    ts_external_token_kString];
   [ts_external_token_ppFragmentExpr;
    ts_external_token__literalStringMultiline; ts_external_token_identifier;
    ts_external_token_kSpecialize; ts_external_token_kTrue;
    ts_external_token_kFalse; ts_external_token_kFunction;
    ts_external_token_kIf; ts_external_token_kInherited;
    ts_external_token_kNil; ts_external_token_kNot;
    ts_external_token_kProcedure; ts_external_token_kString];
   [ts_external_token_kRead; ts_external_token_kWrite;
    ts_external_token_kImplements; ts_external_token_kDefault;
    ts_external_token_kNodefault; ts_external_token_kStored;
    ts_external_token_kIndex; ts_external_token_kDispId;
    ts_external_token_kGeneric; ts_external_token_kOperator;
    ts_external_token_kAnd; ts_external_token_kAs; ts_external_token_kAsm;
    ts_external_token_kBegin; ts_external_token_kClass;
    ts_external_token_kConst; ts_external_token_kConstructor;
    ts_external_token_kDestructor; ts_external_token_kDiv;
    ts_external_token_kExports; ts_external_token_kFunction;
    ts_external_token_kIn; ts_external_token_kIs; ts_external_token_kLabel;
    ts_external_token_kMod; ts_external_token_kNot; ts_external_token_kOf;
    ts_external_token_kOr; ts_external_token_kProcedure;
    ts_external_token_kResourcestring; ts_external_token_kShl;
    ts_external_token_kShr; ts_external_token_kThreadvar;
    ts_external_token_kType; ts_external_token_kUses; ts_external_token_kVar;
    ts_external_token_kXor];
   [ts_external_token_kRead; ts_external_token_kWrite;
    ts_external_token_kImplements; ts_external_token_kDefault;
    ts_external_token_kNodefault; ts_external_token_kStored;
    ts_external_token_kIndex; ts_external_token_kDispId;
    ts_external_token_kGeneric; ts_external_token_kOperator;
    ts_external_token_kAnd; ts_external_token_kAs; ts_external_token_kAsm;
    ts_external_token_kBegin; ts_external_token_kClass;
    ts_external_token_kConst; ts_external_token_kConstructor;
    ts_external_token_kDestructor; ts_external_token_kDiv;
    ts_external_token_kExports; ts_external_token_kFunction;
    ts_external_token_kIn; ts_external_token_kIs; ts_external_token_kLabel;
    ts_external_token_kMod; ts_external_token_kNot; ts_external_token_kOr;
    ts_external_token_kProcedure; ts_external_token_kResourcestring;
    ts_external_token_kShl; ts_external_token_kShr;
    ts_external_token_kThreadvar; ts_external_token_kType;
    ts_external_token_kUses; ts_external_token_kVar; ts_external_token_kXor];
   [ts_external_token_ppFragmentExpr;
    ts_external_token__literalStringMultiline; ts_external_token_identifier;
    ts_external_token_kHelper; ts_external_token_kSpecialize;
    ts_external_token_kReference; ts_external_token_kArray;
    ts_external_token_kClass; ts_external_token_kFile;
    ts_external_token_kFunction; ts_external_token_kPacked;
    ts_external_token_kProcedure; ts_external_token_kRecord;
    ts_external_token_kSet; ts_external_token_kString]
  ].

(** States 82 to 87. *)
Definition ts_external_scanner_states_82 : list (list ts_external_token) :=
  [
   [ts_external_token_ppFragmentExpr;
    ts_external_token__literalStringMultiline; ts_external_token_identifier;
    ts_external_token_kSpecialize; ts_external_token_kTrue;
    ts_external_token_kFalse; ts_external_token_kFunction;
    ts_external_token_kIf; ts_external_token_kIn;
    ts_external_token_kInherited; ts_external_token_kNil;
    ts_external_token_kNot; ts_external_token_kProcedure;
    ts_external_token_kString];
   [ts_external_token_ppFragmentExpr;
    ts_external_token__literalStringMultiline; ts_external_token_identifier;
    ts_external_token_kSpecialize; ts_external_token_kReference;
    ts_external_token_kArray; ts_external_token_kClass;
    ts_external_token_kFile; ts_external_token_kFunction;
    ts_external_token_kPacked; ts_external_token_kProcedure;
    ts_external_token_kRecord; ts_external_token_kSet;
    ts_external_token_kString];
   [ts_external_token_identifier; ts_external_token_kHelper;
    ts_external_token_kGeneric; ts_external_token_kOperator;
    ts_external_token_kPublished; ts_external_token_kPublic;
    ts_external_token_kProtected; ts_external_token_kPrivate;
    ts_external_token_kStrict; ts_external_token_kRequired;
    ts_external_token_kOptional; ts_external_token_kAbstract;
    ts_external_token_kSealed; ts_external_token_kExternal;
    ts_external_token_kCase; ts_external_token_kClass;
    ts_external_token_kConst; ts_external_token_kConstructor;
    ts_external_token_kDestructor; ts_external_token_kEnd;
    ts_external_token_kFunction; ts_external_token_kOf;
    ts_external_token_kProcedure; ts_external_token_kProperty;
    ts_external_token_kResourcestring; ts_external_token_kThreadvar;
    ts_external_token_kType; ts_external_token_kVar];
   [ts_external_token_kGeneric; ts_external_token_kOtherwise;
    ts_external_token_kOperator; ts_external_token_kAnd;
    ts_external_token_kAs; ts_external_token_kAsm; ts_external_token_kBegin;
    ts_external_token_kClass; ts_external_token_kConst;
    ts_external_token_kConstructor; ts_external_token_kDestructor;
    ts_external_token_kDiv; ts_external_token_kElse; ts_external_token_kEnd;
    ts_external_token_kExports; ts_external_token_kFunction;
    ts_external_token_kIn; ts_external_token_kIs; ts_external_token_kLabel;
    ts_external_token_kMod; ts_external_token_kNot; ts_external_token_kOr;
    ts_external_token_kProcedure; ts_external_token_kResourcestring;
    ts_external_token_kShl; ts_external_token_kShr;
    ts_external_token_kThreadvar; ts_external_token_kType;
    ts_external_token_kUses; ts_external_token_kVar; ts_external_token_kXor];
   [ts_external_token_kGeneric; ts_external_token_kOperator;
    ts_external_token_kAnd; ts_external_token_kAs; ts_external_token_kAsm;
    ts_external_token_kBegin; ts_external_token_kClass;
    ts_external_token_kConst; ts_external_token_kConstructor;
    ts_external_token_kDestructor; ts_external_token_kDiv;
    ts_external_token_kElse; ts_external_token_kExcept;
    ts_external_token_kExports; ts_external_token_kFinally;
    ts_external_token_kFunction; ts_external_token_kIn; ts_external_token_kIs;
    ts_external_token_kLabel; ts_external_token_kMod; ts_external_token_kNot;
    ts_external_token_kOr; ts_external_token_kProcedure;
    ts_external_token_kResourcestring; ts_external_token_kShl;
    ts_external_token_kShr; ts_external_token_kThreadvar;
    ts_external_token_kType; ts_external_token_kUses; ts_external_token_kVar;
    ts_external_token_kXor];
   [ts_external_token_ppFragmentExpr;
    ts_external_token__literalStringMultiline; ts_external_token_identifier;
    ts_external_token_kSpecialize; ts_external_token_kTrue;
    ts_external_token_kFalse; ts_external_token_kFunction;
    ts_external_token_kIf; ts_external_token_kInherited;
    ts_external_token_kNil; ts_external_token_kNot; ts_external_token_kOf;
    ts_external_token_kProcedure; ts_external_token_kString]
  ].

(** States 88 to 92. *)
Definition ts_external_scanner_states_88 : list (list ts_external_token) :=
  [
   [ts_external_token_identifier; ts_external_token_kHelper;
    ts_external_token_kGeneric; ts_external_token_kOperator;
    ts_external_token_kPublished; ts_external_token_kPublic;
    ts_external_token_kProtected; ts_external_token_kPrivate;
    ts_external_token_kStrict; ts_external_token_kRequired;
    ts_external_token_kOptional; ts_external_token_kAbstract;
    ts_external_token_kSealed; ts_external_token_kExternal;
    ts_external_token_kCase; ts_external_token_kClass;
    ts_external_token_kConst; ts_external_token_kConstructor;
    ts_external_token_kDestructor; ts_external_token_kEnd;
    ts_external_token_kFunction; ts_external_token_kProcedure;
    ts_external_token_kProperty; ts_external_token_kResourcestring;
    ts_external_token_kThreadvar; ts_external_token_kType;
    ts_external_token_kVar];
   [ts_external_token_ppFragmentExpr;
    ts_external_token__literalStringMultiline; ts_external_token_identifier;
    ts_external_token_kIndex; ts_external_token_kSpecialize;
    ts_external_token_kName; ts_external_token_kDelayed;
    ts_external_token_kTrue; ts_external_token_kFalse;
    ts_external_token_kFunction; ts_external_token_kIf;
    ts_external_token_kInherited; ts_external_token_kNil;
    ts_external_token_kNot; ts_external_token_kProcedure;
    ts_external_token_kString];
   [ts_external_token_kGeneric; ts_external_token_kOperator;
    ts_external_token_kAnd; ts_external_token_kAs; ts_external_token_kAsm;
    ts_external_token_kBegin; ts_external_token_kClass;
    ts_external_token_kConst; ts_external_token_kConstructor;
    ts_external_token_kDestructor; ts_external_token_kDiv;
    ts_external_token_kExcept; ts_external_token_kExports;
    ts_external_token_kFinally; ts_external_token_kFunction;
    ts_external_token_kIn; ts_external_token_kIs; ts_external_token_kLabel;
    ts_external_token_kMod; ts_external_token_kNot; ts_external_token_kOr;
    ts_external_token_kProcedure; ts_external_token_kResourcestring;
    ts_external_token_kShl; ts_external_token_kShr;
    ts_external_token_kThreadvar; ts_external_token_kType;
    ts_external_token_kUses; ts_external_token_kVar; ts_external_token_kXor];
   [ts_external_token_kGeneric; ts_external_token_kOperator;
    ts_external_token_kAnd; ts_external_token_kAs; ts_external_token_kAsm;
    ts_external_token_kBegin; ts_external_token_kClass;
    ts_external_token_kConst; ts_external_token_kConstructor;
    ts_external_token_kDestructor; ts_external_token_kDiv;
    ts_external_token_kElse; ts_external_token_kEnd;
    ts_external_token_kExports; ts_external_token_kFunction;
    ts_external_token_kIn; ts_external_token_kIs; ts_external_token_kLabel;
    ts_external_token_kMod; ts_external_token_kNot; ts_external_token_kOr;
    ts_external_token_kProcedure; ts_external_token_kResourcestring;
    ts_external_token_kShl; ts_external_token_kShr;
    ts_external_token_kThreadvar; ts_external_token_kType;
    ts_external_token_kUses; ts_external_token_kVar; ts_external_token_kXor];
   [ts_external_token_kGeneric; ts_external_token_kOperator;
    ts_external_token_kAnd; ts_external_token_kAs; ts_external_token_kAsm;
    ts_external_token_kBegin; ts_external_token_kClass;
    ts_external_token_kConst; ts_external_token_kConstructor;
    ts_external_token_kDestructor; ts_external_token_kDiv;
    ts_external_token_kElse; ts_external_token_kExports;
    ts_external_token_kFunction; ts_external_token_kIn; ts_external_token_kIs;
    ts_external_token_kLabel; ts_external_token_kMod; ts_external_token_kNot;
    ts_external_token_kOr; ts_external_token_kProcedure;
    ts_external_token_kResourcestring; ts_external_token_kShl;
    ts_external_token_kShr; ts_external_token_kThreadvar;
    ts_external_token_kType; ts_external_token_kUntil;
    ts_external_token_kUses; ts_external_token_kVar; ts_external_token_kXor]
  ].

(** States 93 to 97. *)
Definition ts_external_scanner_states_93 : list (list ts_external_token) :=
  [
   [ts_external_token_kGeneric; ts_external_token_kRaiseAt;
    ts_external_token_kOperator; ts_external_token_kAnd;
    ts_external_token_kAs; ts_external_token_kAsm; ts_external_token_kBegin;
    ts_external_token_kClass; ts_external_token_kConst;
    ts_external_token_kConstructor; ts_external_token_kDestructor;
    ts_external_token_kDiv; ts_external_token_kElse; ts_external_token_kEnd;
    ts_external_token_kExports; ts_external_token_kFinalization;
    ts_external_token_kFunction; ts_external_token_kImplementation;
    ts_external_token_kIn; ts_external_token_kInitialization;
    ts_external_token_kInterface; ts_external_token_kIs;
    ts_external_token_kLabel; ts_external_token_kMod; ts_external_token_kNot;
    ts_external_token_kOr; ts_external_token_kProcedure;
    ts_external_token_kResourcestring; ts_external_token_kShl;
    ts_external_token_kShr; ts_external_token_kThreadvar;
    ts_external_token_kType; ts_external_token_kUses; ts_external_token_kVar;
    ts_external_token_kXor];
   [ts_external_token_ppFragmentExpr;
    ts_external_token__literalStringMultiline; ts_external_token_identifier;
    ts_external_token_kAbsolute; ts_external_token_kSpecialize;
    ts_external_token_kTrue; ts_external_token_kFalse;
    ts_external_token_kFunction; ts_external_token_kIf;
    ts_external_token_kInherited; ts_external_token_kNil;
    ts_external_token_kNot; ts_external_token_kOf;
    ts_external_token_kProcedure; ts_external_token_kString];
   [ts_external_token_identifier; ts_external_token_kGeneric;
    ts_external_token_kOperator; ts_external_token_kPublished;
    ts_external_token_kPublic; ts_external_token_kProtected;
    ts_external_token_kPrivate; ts_external_token_kStrict;
    ts_external_token_kRequired; ts_external_token_kOptional;
    ts_external_token_kAbstract; ts_external_token_kSealed;
    ts_external_token_kExternal; ts_external_token_kCase;
    ts_external_token_kClass; ts_external_token_kConst;
    ts_external_token_kConstructor; ts_external_token_kDestructor;
    ts_external_token_kEnd; ts_external_token_kFunction;
    ts_external_token_kProcedure; ts_external_token_kProperty;
    ts_external_token_kResourcestring; ts_external_token_kThreadvar;
    ts_external_token_kType; ts_external_token_kVar];
   [ts_external_token_ppFragmentExpr;
    ts_external_token__literalStringMultiline; ts_external_token_identifier;
    ts_external_token_kSpecialize; ts_external_token_kTrue;
    ts_external_token_kFalse; ts_external_token_kFunction;
    ts_external_token_kIf; ts_external_token_kInherited;
    ts_external_token_kNil; ts_external_token_kNot;
    ts_external_token_kProcedure; ts_external_token_kString;
    ts_external_token_kVar];
   [ts_external_token_kGeneric; ts_external_token_kOperator;
    ts_external_token_kAnd; ts_external_token_kAs; ts_external_token_kAsm;
    ts_external_token_kBegin; ts_external_token_kClass;
    ts_external_token_kConst; ts_external_token_kConstructor;
    ts_external_token_kDestructor; ts_external_token_kDiv;
    ts_external_token_kExports; ts_external_token_kFunction;
    ts_external_token_kIn; ts_external_token_kIs; ts_external_token_kLabel;
    ts_external_token_kMod; ts_external_token_kNot; ts_external_token_kOr;
    ts_external_token_kProcedure; ts_external_token_kResourcestring;
    ts_external_token_kShl; ts_external_token_kShr;
    ts_external_token_kThreadvar; ts_external_token_kType;
    ts_external_token_kUntil; ts_external_token_kUses; ts_external_token_kVar;
    ts_external_token_kXor]
  ].

(** States 98 to 101. *)
Definition ts_external_scanner_states_98 : list (list ts_external_token) :=
  [
   [ts_external_token_kGeneric; ts_external_token_kOperator;
    ts_external_token_kAnd; ts_external_token_kAs; ts_external_token_kAsm;
    ts_external_token_kBegin; ts_external_token_kClass;
    ts_external_token_kConst; ts_external_token_kConstructor;
    ts_external_token_kDestructor; ts_external_token_kDiv;
    ts_external_token_kEnd; ts_external_token_kExports;
    ts_external_token_kFunction; ts_external_token_kIn; ts_external_token_kIs;
    ts_external_token_kLabel; ts_external_token_kMod; ts_external_token_kNot;
    ts_external_token_kOr; ts_external_token_kProcedure;
    ts_external_token_kResourcestring; ts_external_token_kShl;
    ts_external_token_kShr; ts_external_token_kThreadvar;
    ts_external_token_kType; ts_external_token_kUses; ts_external_token_kVar;
    ts_external_token_kXor];
   [ts_external_token_kDefault; ts_external_token_kNodefault;
    ts_external_token_kDispId; ts_external_token_kPublic;
    ts_external_token_kStatic; ts_external_token_kVirtual;
    ts_external_token_kAbstract; ts_external_token_kDynamic;
    ts_external_token_kOverride; ts_external_token_kOverload;
    ts_external_token_kReintroduce; ts_external_token_kStdcall;
    ts_external_token_kCdecl; ts_external_token_kCppdecl;
    ts_external_token_kPascal; ts_external_token_kRegister;
    ts_external_token_kMwpascal; ts_external_token_kExternal;
    ts_external_token_kMessage; ts_external_token_kDeprecated;
    ts_external_token_kExperimental; ts_external_token_kPlatform;
    ts_external_token_kUnimplemented; ts_external_token_kCvar;
    ts_external_token_kExport; ts_external_token_kFar;
    ts_external_token_kNear; ts_external_token_kSafecall;
    ts_external_token_kAssembler; ts_external_token_kNostackframe;
    ts_external_token_kInterrupt; ts_external_token_kNoreturn;
    ts_external_token_kIocheck; ts_external_token_kLocal;
    ts_external_token_kHardfloat; ts_external_token_kSoftfloat;
    ts_external_token_kMs_abi_default; ts_external_token_kMs_abi_cdecl;
    ts_external_token_kSaveregisters; ts_external_token_kSysv_abi_default;
    ts_external_token_kSysv_abi_cdecl; ts_external_token_kVectorcall;
    ts_external_token_kVarargs; ts_external_token_kWinapi;
    ts_external_token_kAlias; ts_external_token_kInline];
   [ts_external_token_kGeneric; ts_external_token_kOperator;
    ts_external_token_kAnd; ts_external_token_kAs; ts_external_token_kAsm;
    ts_external_token_kBegin; ts_external_token_kClass;
    ts_external_token_kConst; ts_external_token_kConstructor;
    ts_external_token_kDestructor; ts_external_token_kDiv;
    ts_external_token_kElse; ts_external_token_kExports;
    ts_external_token_kFunction; ts_external_token_kIn; ts_external_token_kIs;
    ts_external_token_kLabel; ts_external_token_kMod; ts_external_token_kNot;
    ts_external_token_kOr; ts_external_token_kProcedure;
    ts_external_token_kResourcestring; ts_external_token_kShl;
    ts_external_token_kShr; ts_external_token_kThreadvar;
    ts_external_token_kType; ts_external_token_kUses; ts_external_token_kVar;
    ts_external_token_kXor];
   [ts_external_token_kGeneric; ts_external_token_kRaiseAt;
    ts_external_token_kOperator; ts_external_token_kAnd;
    ts_external_token_kAs; ts_external_token_kAsm; ts_external_token_kBegin;
    ts_external_token_kClass; ts_external_token_kConst;
    ts_external_token_kConstructor; ts_external_token_kDestructor;
    ts_external_token_kDiv; ts_external_token_kEnd;
    ts_external_token_kExports; ts_external_token_kFinalization;
    ts_external_token_kFunction; ts_external_token_kImplementation;
    ts_external_token_kIn; ts_external_token_kInitialization;
    ts_external_token_kInterface; ts_external_token_kIs;
    ts_external_token_kLabel; ts_external_token_kMod; ts_external_token_kNot;
    ts_external_token_kOr; ts_external_token_kProcedure;
    ts_external_token_kResourcestring; ts_external_token_kShl;
    ts_external_token_kShr; ts_external_token_kThreadvar;
    ts_external_token_kType; ts_external_token_kUses; ts_external_token_kVar;
    ts_external_token_kXor]
  ].

(** States 102 to 106. *)
Definition ts_external_scanner_states_102 : list (list ts_external_token) :=
  [
   [ts_external_token_kAbsolute; ts_external_token_kGeneric;
    ts_external_token_kOperator; ts_external_token_kAnd;
    ts_external_token_kAs; ts_external_token_kAsm; ts_external_token_kBegin;
    ts_external_token_kClass; ts_external_token_kConst;
    ts_external_token_kConstructor; ts_external_token_kDestructor;
    ts_external_token_kDiv; ts_external_token_kExports;
    ts_external_token_kFunction; ts_external_token_kIn; ts_external_token_kIs;
    ts_external_token_kLabel; ts_external_token_kMod; ts_external_token_kNot;
    ts_external_token_kOr; ts_external_token_kProcedure;
    ts_external_token_kResourcestring; ts_external_token_kShl;
    ts_external_token_kShr; ts_external_token_kThreadvar;
    ts_external_token_kType; ts_external_token_kUses; ts_external_token_kVar;
    ts_external_token_kXor];
   [ts_external_token_kGeneric; ts_external_token_kOperator;
    ts_external_token_kAnd; ts_external_token_kAs; ts_external_token_kAsm;
    ts_external_token_kBegin; ts_external_token_kClass;
    ts_external_token_kConst; ts_external_token_kConstructor;
    ts_external_token_kDestructor; ts_external_token_kDiv;
    ts_external_token_kExports; ts_external_token_kFunction;
    ts_external_token_kIn; ts_external_token_kIs; ts_external_token_kLabel;
    ts_external_token_kMod; ts_external_token_kNot; ts_external_token_kOr;
    ts_external_token_kProcedure; ts_external_token_kResourcestring;
    ts_external_token_kShl; ts_external_token_kShr;
    ts_external_token_kThreadvar; ts_external_token_kType;
    ts_external_token_kUses; ts_external_token_kVar; ts_external_token_kXor];
   [ts_external_token__literalStringMultiline; ts_external_token_kGeneric;
    ts_external_token_kOperator; ts_external_token_kAnd;
    ts_external_token_kAs; ts_external_token_kAsm; ts_external_token_kBegin;
    ts_external_token_kClass; ts_external_token_kConst;
    ts_external_token_kConstructor; ts_external_token_kDestructor;
    ts_external_token_kDiv; ts_external_token_kExports;
    ts_external_token_kFunction; ts_external_token_kIn; ts_external_token_kIs;
    ts_external_token_kLabel; ts_external_token_kMod; ts_external_token_kNot;
    ts_external_token_kOr; ts_external_token_kProcedure;
    ts_external_token_kResourcestring; ts_external_token_kShl;
    ts_external_token_kShr; ts_external_token_kThreadvar;
    ts_external_token_kType; ts_external_token_kUses; ts_external_token_kVar;
    ts_external_token_kXor];
   [ts_external_token_kGeneric; ts_external_token_kOperator;
    ts_external_token_kAnd; ts_external_token_kAs; ts_external_token_kAsm;
    ts_external_token_kBegin; ts_external_token_kClass;
    ts_external_token_kConst; ts_external_token_kConstructor;
    ts_external_token_kDestructor; ts_external_token_kDiv;
    ts_external_token_kDo; ts_external_token_kExports;
    ts_external_token_kFunction; ts_external_token_kIn; ts_external_token_kIs;
    ts_external_token_kLabel; ts_external_token_kMod; ts_external_token_kNot;
    ts_external_token_kOr; ts_external_token_kProcedure;
    ts_external_token_kResourcestring; ts_external_token_kShl;
    ts_external_token_kShr; ts_external_token_kThreadvar;
    ts_external_token_kType; ts_external_token_kUses; ts_external_token_kVar;
    ts_external_token_kXor];
   [ts_external_token_identifier; ts_external_token_kGeneric;
    ts_external_token_kOperator; ts_external_token_kPublished;
    ts_external_token_kPublic; ts_external_token_kProtected;
    ts_external_token_kPrivate; ts_external_token_kStrict;
    ts_external_token_kRequired; ts_external_token_kOptional;
    ts_external_token_kName; ts_external_token_kCase;
    ts_external_token_kClass; ts_external_token_kConst;
    ts_external_token_kConstructor; ts_external_token_kDestructor;
    ts_external_token_kEnd; ts_external_token_kFunction;
    ts_external_token_kProcedure; ts_external_token_kProperty;
    ts_external_token_kResourcestring; ts_external_token_kThreadvar;
    ts_external_token_kType; ts_external_token_kVar]
  ].

(** States 107 to 110. *)
Definition ts_external_scanner_states_107 : list (list ts_external_token) :=
  [
   [ts_external_token_identifier; ts_external_token_kGeneric;
    ts_external_token_kOperator; ts_external_token_kPublished;
    ts_external_token_kPublic; ts_external_token_kProtected;
    ts_external_token_kPrivate; ts_external_token_kStrict;
    ts_external_token_kRequired; ts_external_token_kOptional;
    ts_external_token_kCase; ts_external_token_kClass;
    ts_external_token_kConst; ts_external_token_kConstructor;
    ts_external_token_kDestructor; ts_external_token_kEnd;
    ts_external_token_kFunction; ts_external_token_kProcedure;
    ts_external_token_kProperty; ts_external_token_kResourcestring;
    ts_external_token_kThreadvar; ts_external_token_kType;
    ts_external_token_kVar];
   [ts_external_token_kGeneric; ts_external_token_kOtherwise;
    ts_external_token_kRaiseAt; ts_external_token_kOperator;
    ts_external_token_kAnd; ts_external_token_kAs; ts_external_token_kAsm;
    ts_external_token_kBegin; ts_external_token_kClass;
    ts_external_token_kConst; ts_external_token_kConstructor;
    ts_external_token_kDestructor; ts_external_token_kDiv;
    ts_external_token_kElse; ts_external_token_kEnd;
    ts_external_token_kExports; ts_external_token_kFunction;
    ts_external_token_kIn; ts_external_token_kIs; ts_external_token_kLabel;
    ts_external_token_kMod; ts_external_token_kNot; ts_external_token_kOr;
    ts_external_token_kProcedure; ts_external_token_kResourcestring;
    ts_external_token_kShl; ts_external_token_kShr;
    ts_external_token_kThreadvar; ts_external_token_kType;
    ts_external_token_kUses; ts_external_token_kVar; ts_external_token_kXor];
   [ts_external_token_kGeneric; ts_external_token_kRaiseAt;
    ts_external_token_kOperator; ts_external_token_kAnd;
    ts_external_token_kAs; ts_external_token_kAsm; ts_external_token_kBegin;
    ts_external_token_kClass; ts_external_token_kConst;
    ts_external_token_kConstructor; ts_external_token_kDestructor;
    ts_external_token_kDiv; ts_external_token_kElse;
    ts_external_token_kExcept; ts_external_token_kExports;
    ts_external_token_kFinally; ts_external_token_kFunction;
    ts_external_token_kIn; ts_external_token_kIs; ts_external_token_kLabel;
    ts_external_token_kMod; ts_external_token_kNot; ts_external_token_kOr;
    ts_external_token_kProcedure; ts_external_token_kResourcestring;
    ts_external_token_kShl; ts_external_token_kShr;
    ts_external_token_kThreadvar; ts_external_token_kType;
    ts_external_token_kUses; ts_external_token_kVar; ts_external_token_kXor];
   [ts_external_token_ppFragmentExpr;
    ts_external_token__literalStringMultiline; ts_external_token_identifier;
    ts_external_token_kSpecialize; ts_external_token_kName;
    ts_external_token_kTrue; ts_external_token_kFalse;
    ts_external_token_kFunction; ts_external_token_kIf;
    ts_external_token_kInherited; ts_external_token_kNil;
    ts_external_token_kNot; ts_external_token_kProcedure;
    ts_external_token_kString]
  ].

(** States 111 to 114. *)
Definition ts_external_scanner_states_111 : list (list ts_external_token) :=
  [
   [ts_external_token_identifier; ts_external_token_kDefault;
    ts_external_token_kNodefault; ts_external_token_kDispId;
    ts_external_token_kOperator; ts_external_token_kPublic;
    ts_external_token_kStatic; ts_external_token_kVirtual;
    ts_external_token_kAbstract; ts_external_token_kDynamic;
    ts_external_token_kOverride; ts_external_token_kOverload;
    ts_external_token_kReintroduce; ts_external_token_kStdcall;
    ts_external_token_kCdecl; ts_external_token_kCppdecl;
    ts_external_token_kPascal; ts_external_token_kRegister;
    ts_external_token_kMwpascal; ts_external_token_kMessage;
    ts_external_token_kDeprecated; ts_external_token_kExperimental;
    ts_external_token_kPlatform; ts_external_token_kUnimplemented;
    ts_external_token_kCvar; ts_external_token_kExport;
    ts_external_token_kFar; ts_external_token_kNear;
    ts_external_token_kSafecall; ts_external_token_kAssembler;
    ts_external_token_kNostackframe; ts_external_token_kInterrupt;
    ts_external_token_kNoreturn; ts_external_token_kIocheck;
    ts_external_token_kLocal; ts_external_token_kHardfloat;
    ts_external_token_kSoftfloat; ts_external_token_kMs_abi_default;
    ts_external_token_kMs_abi_cdecl; ts_external_token_kSaveregisters;
    ts_external_token_kSysv_abi_default; ts_external_token_kSysv_abi_cdecl;
    ts_external_token_kVectorcall; ts_external_token_kVarargs;
    ts_external_token_kWinapi; ts_external_token_kAlias];
   [ts_external_token_ppFragmentExpr;
    ts_external_token__literalStringMultiline; ts_external_token_identifier;
    ts_external_token_kSpecialize; ts_external_token_kTrue;
    ts_external_token_kFalse; ts_external_token_kDo;
    ts_external_token_kFunction; ts_external_token_kIf;
    ts_external_token_kInherited; ts_external_token_kNil;
    ts_external_token_kNot; ts_external_token_kProcedure;
    ts_external_token_kString];
   [ts_external_token_kGeneric; ts_external_token_kOperator;
    ts_external_token_kAnd; ts_external_token_kAs; ts_external_token_kAsm;
    ts_external_token_kBegin; ts_external_token_kClass;
    ts_external_token_kConst; ts_external_token_kConstructor;
    ts_external_token_kDestructor; ts_external_token_kDiv;
    ts_external_token_kExports; ts_external_token_kFunction;
    ts_external_token_kIn; ts_external_token_kIs; ts_external_token_kLabel;
    ts_external_token_kMod; ts_external_token_kNot; ts_external_token_kOf;
    ts_external_token_kOr; ts_external_token_kProcedure;
    ts_external_token_kResourcestring; ts_external_token_kShl;
    ts_external_token_kShr; ts_external_token_kThreadvar;
    ts_external_token_kType; ts_external_token_kUses; ts_external_token_kVar;
    ts_external_token_kXor];
   [ts_external_token_kIndex; ts_external_token_kGeneric;
    ts_external_token_kOperator; ts_external_token_kName;
    ts_external_token_kDelayed; ts_external_token_kAnd; ts_external_token_kAs;
    ts_external_token_kAsm; ts_external_token_kBegin;
    ts_external_token_kClass; ts_external_token_kConst;
    ts_external_token_kConstructor; ts_external_token_kDestructor;
    ts_external_token_kDiv; ts_external_token_kExports;
    ts_external_token_kFunction; ts_external_token_kIn; ts_external_token_kIs;
    ts_external_token_kLabel; ts_external_token_kMod; ts_external_token_kNot;
    ts_external_token_kOr; ts_external_token_kProcedure;
    ts_external_token_kResourcestring; ts_external_token_kShl;
    ts_external_token_kShr; ts_external_token_kThreadvar;
    ts_external_token_kType; ts_external_token_kUses; ts_external_token_kVar;
    ts_external_token_kXor]
  ].

(** States 115 to 118. *)
Definition ts_external_scanner_states_115 : list (list ts_external_token) :=
  [
   [ts_external_token_kGeneric; ts_external_token_kRaiseAt;
    ts_external_token_kOperator; ts_external_token_kAnd;
    ts_external_token_kAs; ts_external_token_kAsm; ts_external_token_kBegin;
    ts_external_token_kClass; ts_external_token_kConst;
    ts_external_token_kConstructor; ts_external_token_kDestructor;
    ts_external_token_kDiv; ts_external_token_kExcept;
    ts_external_token_kExports; ts_external_token_kFinally;
    ts_external_token_kFunction; ts_external_token_kIn; ts_external_token_kIs;
    ts_external_token_kLabel; ts_external_token_kMod; ts_external_token_kNot;
    ts_external_token_kOr; ts_external_token_kProcedure;
    ts_external_token_kResourcestring; ts_external_token_kShl;
    ts_external_token_kShr; ts_external_token_kThreadvar;
    ts_external_token_kType; ts_external_token_kUses; ts_external_token_kVar;
    ts_external_token_kXor];
   [ts_external_token_kIndex; ts_external_token_kGeneric;
    ts_external_token_kOperator; ts_external_token_kName;
    ts_external_token_kAnd; ts_external_token_kAs; ts_external_token_kAsm;
    ts_external_token_kBegin; ts_external_token_kClass;
    ts_external_token_kConst; ts_external_token_kConstructor;
    ts_external_token_kDestructor; ts_external_token_kDiv;
    ts_external_token_kExports; ts_external_token_kFunction;
    ts_external_token_kIn; ts_external_token_kIs; ts_external_token_kLabel;
    ts_external_token_kMod; ts_external_token_kNot; ts_external_token_kOr;
    ts_external_token_kProcedure; ts_external_token_kResourcestring;
    ts_external_token_kShl; ts_external_token_kShr;
    ts_external_token_kThreadvar; ts_external_token_kType;
    ts_external_token_kUses; ts_external_token_kVar; ts_external_token_kXor];
   [ts_external_token_kGeneric; ts_external_token_kRaiseAt;
    ts_external_token_kOperator; ts_external_token_kAnd;
    ts_external_token_kAs; ts_external_token_kAsm; ts_external_token_kBegin;
    ts_external_token_kClass; ts_external_token_kConst;
    ts_external_token_kConstructor; ts_external_token_kDestructor;
    ts_external_token_kDiv; ts_external_token_kElse;
    ts_external_token_kExports; ts_external_token_kFunction;
    ts_external_token_kIn; ts_external_token_kIs; ts_external_token_kLabel;
    ts_external_token_kMod; ts_external_token_kNot; ts_external_token_kOr;
    ts_external_token_kProcedure; ts_external_token_kResourcestring;
    ts_external_token_kShl; ts_external_token_kShr;
    ts_external_token_kThreadvar; ts_external_token_kType;
    ts_external_token_kUntil; ts_external_token_kUses; ts_external_token_kVar;
    ts_external_token_kXor];
   [ts_external_token_kGeneric; ts_external_token_kRaiseAt;
    ts_external_token_kOperator; ts_external_token_kAnd;
    ts_external_token_kAs; ts_external_token_kAsm; ts_external_token_kBegin;
    ts_external_token_kClass; ts_external_token_kConst;
    ts_external_token_kConstructor; ts_external_token_kDestructor;
    ts_external_token_kDiv; ts_external_token_kElse; ts_external_token_kEnd;
    ts_external_token_kExports; ts_external_token_kFunction;
    ts_external_token_kIn; ts_external_token_kIs; ts_external_token_kLabel;
    ts_external_token_kMod; ts_external_token_kNot; ts_external_token_kOr;
    ts_external_token_kProcedure; ts_external_token_kResourcestring;
    ts_external_token_kShl; ts_external_token_kShr;
    ts_external_token_kThreadvar; ts_external_token_kType;
    ts_external_token_kUses; ts_external_token_kVar; ts_external_token_kXor]
  ].

(** States 119 to 122. *)
Definition ts_external_scanner_states_119 : list (list ts_external_token) :=
  [
   [ts_external_token_ppFragmentExpr; ts_external_token_ppFragmentStmt;
    ts_external_token__literalStringMultiline; ts_external_token_identifier;
    ts_external_token_kSpecialize; ts_external_token_kTrue;
    ts_external_token_kFalse; ts_external_token_kAsm;
    ts_external_token_kBegin; ts_external_token_kCase;
    ts_external_token_kConst; ts_external_token_kElse; ts_external_token_kEnd;
    ts_external_token_kFinalization; ts_external_token_kFor;
    ts_external_token_kFunction; ts_external_token_kGoto;
    ts_external_token_kIf; ts_external_token_kImplementation;
    ts_external_token_kInherited; ts_external_token_kInitialization;
    ts_external_token_kInterface; ts_external_token_kNil;
    ts_external_token_kNot; ts_external_token_kProcedure;
    ts_external_token_kRaise; ts_external_token_kRepeat;
    ts_external_token_kString; ts_external_token_kTry; ts_external_token_kVar;
    ts_external_token_kWhile; ts_external_token_kWith];
   [ts_external_token_kAbsolute; ts_external_token_kGeneric;
    ts_external_token_kOperator; ts_external_token_kAnd;
    ts_external_token_kAs; ts_external_token_kAsm; ts_external_token_kBegin;
    ts_external_token_kClass; ts_external_token_kConst;
    ts_external_token_kConstructor; ts_external_token_kDestructor;
    ts_external_token_kDiv; ts_external_token_kExports;
    ts_external_token_kFunction; ts_external_token_kIn; ts_external_token_kIs;
    ts_external_token_kLabel; ts_external_token_kMod; ts_external_token_kNot;
    ts_external_token_kOf; ts_external_token_kOr;
    ts_external_token_kProcedure; ts_external_token_kResourcestring;
    ts_external_token_kShl; ts_external_token_kShr;
    ts_external_token_kThreadvar; ts_external_token_kType;
    ts_external_token_kUses; ts_external_token_kVar; ts_external_token_kXor];
   [ts_external_token_kGeneric; ts_external_token_kRaiseAt;
    ts_external_token_kOperator; ts_external_token_kAnd;
    ts_external_token_kAs; ts_external_token_kAsm; ts_external_token_kBegin;
    ts_external_token_kClass; ts_external_token_kConst;
    ts_external_token_kConstructor; ts_external_token_kDestructor;
    ts_external_token_kDiv; ts_external_token_kElse;
    ts_external_token_kExports; ts_external_token_kFunction;
    ts_external_token_kIn; ts_external_token_kIs; ts_external_token_kLabel;
    ts_external_token_kMod; ts_external_token_kNot; ts_external_token_kOr;
    ts_external_token_kProcedure; ts_external_token_kResourcestring;
    ts_external_token_kShl; ts_external_token_kShr;
    ts_external_token_kThreadvar; ts_external_token_kType;
    ts_external_token_kUses; ts_external_token_kVar; ts_external_token_kXor];
   [ts_external_token_kGeneric; ts_external_token_kRaiseAt;
    ts_external_token_kOperator; ts_external_token_kAnd;
    ts_external_token_kAs; ts_external_token_kAsm; ts_external_token_kBegin;
    ts_external_token_kClass; ts_external_token_kConst;
    ts_external_token_kConstructor; ts_external_token_kDestructor;
    ts_external_token_kDiv; ts_external_token_kEnd;
    ts_external_token_kExports; ts_external_token_kFunction;
    ts_external_token_kIn; ts_external_token_kIs; ts_external_token_kLabel;
    ts_external_token_kMod; ts_external_token_kNot; ts_external_token_kOr;
    ts_external_token_kProcedure; ts_external_token_kResourcestring;
    ts_external_token_kShl; ts_external_token_kShr;
    ts_external_token_kThreadvar; ts_external_token_kType;
    ts_external_token_kUses; ts_external_token_kVar; ts_external_token_kXor]
  ].

(** States 123 to 127. *)
Definition ts_external_scanner_states_123 : list (list ts_external_token) :=
  [
   [ts_external_token_kGeneric; ts_external_token_kRaiseAt;
    ts_external_token_kOperator; ts_external_token_kAnd;
    ts_external_token_kAs; ts_external_token_kAsm; ts_external_token_kBegin;
    ts_external_token_kClass; ts_external_token_kConst;
    ts_external_token_kConstructor; ts_external_token_kDestructor;
    ts_external_token_kDiv; ts_external_token_kExports;
    ts_external_token_kFunction; ts_external_token_kIn; ts_external_token_kIs;
    ts_external_token_kLabel; ts_external_token_kMod; ts_external_token_kNot;
    ts_external_token_kOr; ts_external_token_kProcedure;
    ts_external_token_kResourcestring; ts_external_token_kShl;
    ts_external_token_kShr; ts_external_token_kThreadvar;
    ts_external_token_kType; ts_external_token_kUntil;
    ts_external_token_kUses; ts_external_token_kVar; ts_external_token_kXor];
   [ts_external_token_kGeneric; ts_external_token_kOperator;
    ts_external_token_kAnd; ts_external_token_kAs; ts_external_token_kAsm;
    ts_external_token_kBegin; ts_external_token_kClass;
    ts_external_token_kConst; ts_external_token_kConstructor;
    ts_external_token_kDestructor; ts_external_token_kDiv;
    ts_external_token_kDownto; ts_external_token_kExports;
    ts_external_token_kFunction; ts_external_token_kIn; ts_external_token_kIs;
    ts_external_token_kLabel; ts_external_token_kMod; ts_external_token_kNot;
    ts_external_token_kOr; ts_external_token_kProcedure;
    ts_external_token_kResourcestring; ts_external_token_kShl;
    ts_external_token_kShr; ts_external_token_kThreadvar;
    ts_external_token_kTo; ts_external_token_kType; ts_external_token_kUses;
    ts_external_token_kVar; ts_external_token_kXor];
   [ts_external_token_kGeneric; ts_external_token_kRaiseAt;
    ts_external_token_kOperator; ts_external_token_kAnd;
    ts_external_token_kAs; ts_external_token_kAsm; ts_external_token_kBegin;
    ts_external_token_kClass; ts_external_token_kConst;
    ts_external_token_kConstructor; ts_external_token_kDestructor;
    ts_external_token_kDiv; ts_external_token_kExports;
    ts_external_token_kFunction; ts_external_token_kIn; ts_external_token_kIs;
    ts_external_token_kLabel; ts_external_token_kMod; ts_external_token_kNot;
    ts_external_token_kOr; ts_external_token_kProcedure;
    ts_external_token_kResourcestring; ts_external_token_kShl;
    ts_external_token_kShr; ts_external_token_kThreadvar;
    ts_external_token_kType; ts_external_token_kUses; ts_external_token_kVar;
    ts_external_token_kXor];
   [ts_external_token_kGeneric; ts_external_token_kOperator;
    ts_external_token_kDelayed; ts_external_token_kAnd; ts_external_token_kAs;
    ts_external_token_kAsm; ts_external_token_kBegin;
    ts_external_token_kClass; ts_external_token_kConst;
    ts_external_token_kConstructor; ts_external_token_kDestructor;
    ts_external_token_kDiv; ts_external_token_kExports;
    ts_external_token_kFunction; ts_external_token_kIn; ts_external_token_kIs;
    ts_external_token_kLabel; ts_external_token_kMod; ts_external_token_kNot;
    ts_external_token_kOr; ts_external_token_kProcedure;
    ts_external_token_kResourcestring; ts_external_token_kShl;
    ts_external_token_kShr; ts_external_token_kThreadvar;
    ts_external_token_kType; ts_external_token_kUses; ts_external_token_kVar;
    ts_external_token_kXor];
   [ts_external_token_identifier; ts_external_token_kGeneric;
    ts_external_token_kOperator; ts_external_token_kAsm;
    ts_external_token_kBegin; ts_external_token_kClass;
    ts_external_token_kConst; ts_external_token_kConstructor;
    ts_external_token_kDestructor; ts_external_token_kExports;
    ts_external_token_kFunction; ts_external_token_kLabel;
    ts_external_token_kProcedure; ts_external_token_kResourcestring;
    ts_external_token_kThreadvar; ts_external_token_kType;
    ts_external_token_kUses; ts_external_token_kVar]
  ].

(** States 128 to 132. *)
Definition ts_external_scanner_states_128 : list (list ts_external_token) :=
  [
   [ts_external_token_ppFragmentExpr; ts_external_token_ppFragmentStmt;
    ts_external_token__literalStringMultiline; ts_external_token_identifier;
    ts_external_token_kSpecialize; ts_external_token_kTrue;
    ts_external_token_kFalse; ts_external_token_kAsm;
    ts_external_token_kBegin; ts_external_token_kCase;
    ts_external_token_kConst; ts_external_token_kElse; ts_external_token_kFor;
    ts_external_token_kFunction; ts_external_token_kGoto;
    ts_external_token_kIf; ts_external_token_kInherited;
    ts_external_token_kNil; ts_external_token_kNot;
    ts_external_token_kProcedure; ts_external_token_kRaise;
    ts_external_token_kRepeat; ts_external_token_kString;
    ts_external_token_kTry; ts_external_token_kVar; ts_external_token_kWhile;
    ts_external_token_kWith];
   [ts_external_token_identifier; ts_external_token_kGeneric;
    ts_external_token_kOperator; ts_external_token_kAnd;
    ts_external_token_kAs; ts_external_token_kAsm; ts_external_token_kBegin;
    ts_external_token_kClass; ts_external_token_kConst;
    ts_external_token_kConstructor; ts_external_token_kDestructor;
    ts_external_token_kDiv; ts_external_token_kExports;
    ts_external_token_kFunction; ts_external_token_kIn; ts_external_token_kIs;
    ts_external_token_kLabel; ts_external_token_kMod; ts_external_token_kNot;
    ts_external_token_kOr; ts_external_token_kProcedure;
    ts_external_token_kResourcestring; ts_external_token_kShl;
    ts_external_token_kShr; ts_external_token_kThreadvar;
    ts_external_token_kType; ts_external_token_kUses; ts_external_token_kVar;
    ts_external_token_kXor];
   [ts_external_token_kGeneric; ts_external_token_kOperator;
    ts_external_token_kAnd; ts_external_token_kAs; ts_external_token_kAsm;
    ts_external_token_kBegin; ts_external_token_kClass;
    ts_external_token_kConst; ts_external_token_kConstructor;
    ts_external_token_kDestructor; ts_external_token_kDiv;
    ts_external_token_kExports; ts_external_token_kFunction;
    ts_external_token_kIn; ts_external_token_kIs; ts_external_token_kLabel;
    ts_external_token_kMod; ts_external_token_kNot; ts_external_token_kOr;
    ts_external_token_kProcedure; ts_external_token_kResourcestring;
    ts_external_token_kShl; ts_external_token_kShr; ts_external_token_kThen;
    ts_external_token_kThreadvar; ts_external_token_kType;
    ts_external_token_kUses; ts_external_token_kVar; ts_external_token_kXor];
   [ts_external_token_ppFragmentExpr; ts_external_token_ppFragmentStmt;
    ts_external_token__literalStringMultiline; ts_external_token_identifier;
    ts_external_token_kSpecialize; ts_external_token_kTrue;
    ts_external_token_kFalse; ts_external_token_kAsm;
    ts_external_token_kBegin; ts_external_token_kCase;
    ts_external_token_kConst; ts_external_token_kElse;
    ts_external_token_kExcept; ts_external_token_kFinally;
    ts_external_token_kFor; ts_external_token_kFunction;
    ts_external_token_kGoto; ts_external_token_kIf;
    ts_external_token_kInherited; ts_external_token_kNil;
    ts_external_token_kNot; ts_external_token_kProcedure;
    ts_external_token_kRaise; ts_external_token_kRepeat;
    ts_external_token_kString; ts_external_token_kTry; ts_external_token_kVar;
    ts_external_token_kWhile; ts_external_token_kWith];
   [ts_external_token__literalStringMultiline; ts_external_token_kAnd;
    ts_external_token_kAs; ts_external_token_kDiv; ts_external_token_kElse;
    ts_external_token_kEnd; ts_external_token_kFinalization;
    ts_external_token_kImplementation; ts_external_token_kIn;
    ts_external_token_kInitialization; ts_external_token_kInterface;
    ts_external_token_kIs; ts_external_token_kMod; ts_external_token_kNot;
    ts_external_token_kOr; ts_external_token_kShl; ts_external_token_kShr;
    ts_external_token_kXor]
  ].

(** States 133 to 138. *)
Definition ts_external_scanner_states_133 : list (list ts_external_token) :=
  [
   [ts_external_token_ppFragmentExpr; ts_external_token_ppFragmentStmt;
    ts_external_token__literalStringMultiline; ts_external_token_identifier;
    ts_external_token_kSpecialize; ts_external_token_kTrue;
    ts_external_token_kFalse; ts_external_token_kAsm;
    ts_external_token_kBegin; ts_external_token_kCase;
    ts_external_token_kConst; ts_external_token_kElse; ts_external_token_kEnd;
    ts_external_token_kFor; ts_external_token_kFunction;
    ts_external_token_kGoto; ts_external_token_kIf;
    ts_external_token_kInherited; ts_external_token_kNil;
    ts_external_token_kNot; ts_external_token_kProcedure;
    ts_external_token_kRaise; ts_external_token_kRepeat;
    ts_external_token_kString; ts_external_token_kTry; ts_external_token_kVar;
    ts_external_token_kWhile; ts_external_token_kWith];
   [ts_external_token_ppFragmentExpr; ts_external_token_ppFragmentStmt;
    ts_external_token__literalStringMultiline; ts_external_token_identifier;
    ts_external_token_kSpecialize; ts_external_token_kTrue;
    ts_external_token_kFalse; ts_external_token_kAsm;
    ts_external_token_kBegin; ts_external_token_kCase;
    ts_external_token_kConst; ts_external_token_kElse; ts_external_token_kFor;
    ts_external_token_kFunction; ts_external_token_kGoto;
    ts_external_token_kIf; ts_external_token_kInherited;
    ts_external_token_kNil; ts_external_token_kNot;
    ts_external_token_kProcedure; ts_external_token_kRaise;
    ts_external_token_kRepeat; ts_external_token_kString;
    ts_external_token_kTry; ts_external_token_kUntil; ts_external_token_kVar;
    ts_external_token_kWhile; ts_external_token_kWith];
   [ts_external_token__literalStringMultiline; ts_external_token_kAnd;
    ts_external_token_kAs; ts_external_token_kDiv; ts_external_token_kEnd;
    ts_external_token_kFinalization; ts_external_token_kImplementation;
    ts_external_token_kIn; ts_external_token_kInitialization;
    ts_external_token_kInterface; ts_external_token_kIs;
    ts_external_token_kMod; ts_external_token_kNot; ts_external_token_kOr;
    ts_external_token_kShl; ts_external_token_kShr; ts_external_token_kXor];
   [ts_external_token_kGeneric; ts_external_token_kOperator;
    ts_external_token_kAsm; ts_external_token_kBegin;
    ts_external_token_kClass; ts_external_token_kConst;
    ts_external_token_kConstructor; ts_external_token_kDestructor;
    ts_external_token_kExports; ts_external_token_kFunction;
    ts_external_token_kLabel; ts_external_token_kProcedure;
    ts_external_token_kResourcestring; ts_external_token_kThreadvar;
    ts_external_token_kType; ts_external_token_kUses; ts_external_token_kVar];
   [ts_external_token_kGeneric; ts_external_token_kOperator;
    ts_external_token_kPublished; ts_external_token_kPublic;
    ts_external_token_kProtected; ts_external_token_kPrivate;
    ts_external_token_kStrict; ts_external_token_kRequired;
    ts_external_token_kOptional; ts_external_token_kCase;
    ts_external_token_kClass; ts_external_token_kConst;
    ts_external_token_kConstructor; ts_external_token_kDestructor;
    ts_external_token_kEnd; ts_external_token_kFunction;
    ts_external_token_kProcedure; ts_external_token_kProperty;
    ts_external_token_kResourcestring; ts_external_token_kThreadvar;
    ts_external_token_kType; ts_external_token_kVar];
   [ts_external_token__literalStringMultiline; ts_external_token_kRead;
    ts_external_token_kWrite; ts_external_token_kImplements;
    ts_external_token_kDefault; ts_external_token_kNodefault;
    ts_external_token_kStored; ts_external_token_kIndex;
    ts_external_token_kDispId; ts_external_token_kAnd; ts_external_token_kAs;
    ts_external_token_kDiv; ts_external_token_kIn; ts_external_token_kIs;
    ts_external_token_kMod; ts_external_token_kNot; ts_external_token_kOf;
    ts_external_token_kOr; ts_external_token_kShl; ts_external_token_kShr;
    ts_external_token_kXor]
  ].

(** States 139 to 145. *)
Definition ts_external_scanner_states_139 : list (list ts_external_token) :=
  [
   [ts_external_token_kGeneric; ts_external_token_kOperator;
    ts_external_token_kBegin; ts_external_token_kClass;
    ts_external_token_kConst; ts_external_token_kConstructor;
    ts_external_token_kDestructor; ts_external_token_kEnd;
    ts_external_token_kExports; ts_external_token_kFinalization;
    ts_external_token_kFunction; ts_external_token_kImplementation;
    ts_external_token_kInitialization; ts_external_token_kInterface;
    ts_external_token_kLabel; ts_external_token_kProcedure;
    ts_external_token_kResourcestring; ts_external_token_kThreadvar;
    ts_external_token_kType; ts_external_token_kUses; ts_external_token_kVar];
   [ts_external_token__literalStringMultiline; ts_external_token_kRead;
    ts_external_token_kWrite; ts_external_token_kImplements;
    ts_external_token_kDefault; ts_external_token_kNodefault;
    ts_external_token_kStored; ts_external_token_kIndex;
    ts_external_token_kDispId; ts_external_token_kAnd; ts_external_token_kAs;
    ts_external_token_kDiv; ts_external_token_kIn; ts_external_token_kIs;
    ts_external_token_kMod; ts_external_token_kNot; ts_external_token_kOr;
    ts_external_token_kShl; ts_external_token_kShr; ts_external_token_kXor];
   [ts_external_token__literalStringMultiline; ts_external_token_kOtherwise;
    ts_external_token_kAnd; ts_external_token_kAs; ts_external_token_kDiv;
    ts_external_token_kElse; ts_external_token_kEnd; ts_external_token_kIn;
    ts_external_token_kIs; ts_external_token_kMod; ts_external_token_kNot;
    ts_external_token_kOr; ts_external_token_kShl; ts_external_token_kShr;
    ts_external_token_kXor];
   [ts_external_token__literalStringMultiline; ts_external_token_kAnd;
    ts_external_token_kAs; ts_external_token_kDiv; ts_external_token_kElse;
    ts_external_token_kExcept; ts_external_token_kFinally;
    ts_external_token_kIn; ts_external_token_kIs; ts_external_token_kMod;
    ts_external_token_kNot; ts_external_token_kOr; ts_external_token_kShl;
    ts_external_token_kShr; ts_external_token_kXor];
   [ts_external_token__literalStringMultiline; ts_external_token_kRaiseAt;
    ts_external_token_kAnd; ts_external_token_kAs; ts_external_token_kDiv;
    ts_external_token_kElse; ts_external_token_kEnd;
    ts_external_token_kFinalization; ts_external_token_kImplementation;
    ts_external_token_kIn; ts_external_token_kInitialization;
    ts_external_token_kInterface; ts_external_token_kIs;
    ts_external_token_kMod; ts_external_token_kNot; ts_external_token_kOr;
    ts_external_token_kShl; ts_external_token_kShr; ts_external_token_kXor];
   [ts_external_token_kGeneric; ts_external_token_kOperator;
    ts_external_token_kClass; ts_external_token_kConst;
    ts_external_token_kConstructor; ts_external_token_kDestructor;
    ts_external_token_kEnd; ts_external_token_kExports;
    ts_external_token_kFinalization; ts_external_token_kFunction;
    ts_external_token_kImplementation; ts_external_token_kInitialization;
    ts_external_token_kInterface; ts_external_token_kLabel;
    ts_external_token_kProcedure; ts_external_token_kProperty;
    ts_external_token_kResourcestring; ts_external_token_kThreadvar;
    ts_external_token_kType; ts_external_token_kUses; ts_external_token_kVar];
   [ts_external_token__literalStringMultiline; ts_external_token_kAnd;
    ts_external_token_kAs; ts_external_token_kDiv; ts_external_token_kElse;
    ts_external_token_kIn; ts_external_token_kIs; ts_external_token_kMod;
    ts_external_token_kNot; ts_external_token_kOr; ts_external_token_kShl;
    ts_external_token_kShr; ts_external_token_kUntil; ts_external_token_kXor]
  ].

(** States 146 to 153. *)
Definition ts_external_scanner_states_146 : list (list ts_external_token) :=
  [
   [ts_external_token__literalStringMultiline; ts_external_token_kAnd;
    ts_external_token_kAs; ts_external_token_kDiv; ts_external_token_kElse;
    ts_external_token_kEnd; ts_external_token_kIn; ts_external_token_kIs;
    ts_external_token_kMod; ts_external_token_kNot; ts_external_token_kOr;
    ts_external_token_kShl; ts_external_token_kShr; ts_external_token_kXor];
   [ts_external_token__literalStringMultiline; ts_external_token_kAnd;
    ts_external_token_kAs; ts_external_token_kDiv; ts_external_token_kExcept;
    ts_external_token_kFinally; ts_external_token_kIn; ts_external_token_kIs;
    ts_external_token_kMod; ts_external_token_kNot; ts_external_token_kOr;
    ts_external_token_kShl; ts_external_token_kShr; ts_external_token_kXor];
   [ts_external_token__literalStringMultiline; ts_external_token_kAnd;
    ts_external_token_kAs; ts_external_token_kDiv; ts_external_token_kElse;
    ts_external_token_kIn; ts_external_token_kIs; ts_external_token_kMod;
    ts_external_token_kNot; ts_external_token_kOr; ts_external_token_kShl;
    ts_external_token_kShr; ts_external_token_kXor];
   [ts_external_token_kAnd; ts_external_token_kAs; ts_external_token_kDiv;
    ts_external_token_kElse; ts_external_token_kEnd;
    ts_external_token_kFinalization; ts_external_token_kImplementation;
    ts_external_token_kIn; ts_external_token_kInitialization;
    ts_external_token_kInterface; ts_external_token_kIs;
    ts_external_token_kMod; ts_external_token_kNot; ts_external_token_kOr;
    ts_external_token_kShl; ts_external_token_kShr; ts_external_token_kXor];
   [ts_external_token__literalStringMultiline; ts_external_token_kAnd;
    ts_external_token_kAs; ts_external_token_kDiv; ts_external_token_kEnd;
    ts_external_token_kIn; ts_external_token_kIs; ts_external_token_kMod;
    ts_external_token_kNot; ts_external_token_kOr; ts_external_token_kShl;
    ts_external_token_kShr; ts_external_token_kXor];
   [ts_external_token__literalStringMultiline; ts_external_token_kAnd;
    ts_external_token_kAs; ts_external_token_kDiv; ts_external_token_kIn;
    ts_external_token_kIs; ts_external_token_kMod; ts_external_token_kNot;
    ts_external_token_kOr; ts_external_token_kShl; ts_external_token_kShr;
    ts_external_token_kUntil; ts_external_token_kXor];
   [ts_external_token_identifier; ts_external_token_kAnd;
    ts_external_token_kAs; ts_external_token_kDiv; ts_external_token_kElse;
    ts_external_token_kEnd; ts_external_token_kFinalization;
    ts_external_token_kImplementation; ts_external_token_kIn;
    ts_external_token_kInitialization; ts_external_token_kInterface;
    ts_external_token_kIs; ts_external_token_kMod; ts_external_token_kNot;
    ts_external_token_kOr; ts_external_token_kShl; ts_external_token_kShr;
    ts_external_token_kXor];
   [ts_external_token__literalStringMultiline; ts_external_token_kRaiseAt;
    ts_external_token_kAnd; ts_external_token_kAs; ts_external_token_kDiv;
    ts_external_token_kEnd; ts_external_token_kFinalization;
    ts_external_token_kImplementation; ts_external_token_kIn;
    ts_external_token_kInitialization; ts_external_token_kInterface;
    ts_external_token_kIs; ts_external_token_kMod; ts_external_token_kNot;
    ts_external_token_kOr; ts_external_token_kShl; ts_external_token_kShr;
    ts_external_token_kXor]
  ].

(** States 154 to 161. *)
Definition ts_external_scanner_states_154 : list (list ts_external_token) :=
  [
   [ts_external_token__literalStringMultiline; ts_external_token_kAbsolute;
    ts_external_token_kAnd; ts_external_token_kAs; ts_external_token_kDiv;
    ts_external_token_kIn; ts_external_token_kIs; ts_external_token_kMod;
    ts_external_token_kNot; ts_external_token_kOr; ts_external_token_kShl;
    ts_external_token_kShr; ts_external_token_kXor];
   [ts_external_token_kGeneric; ts_external_token_kOperator;
    ts_external_token_kBegin; ts_external_token_kClass;
    ts_external_token_kConst; ts_external_token_kConstructor;
    ts_external_token_kDestructor; ts_external_token_kEnd;
    ts_external_token_kExports; ts_external_token_kFunction;
    ts_external_token_kLabel; ts_external_token_kProcedure;
    ts_external_token_kResourcestring; ts_external_token_kThreadvar;
    ts_external_token_kType; ts_external_token_kUses; ts_external_token_kVar];
   [ts_external_token__literalStringMultiline; ts_external_token_kAnd;
    ts_external_token_kAs; ts_external_token_kDiv; ts_external_token_kIn;
    ts_external_token_kIs; ts_external_token_kMod; ts_external_token_kNot;
    ts_external_token_kOr; ts_external_token_kShl; ts_external_token_kShr;
    ts_external_token_kXor];
   [ts_external_token_kAnd; ts_external_token_kAs; ts_external_token_kDiv;
    ts_external_token_kEnd; ts_external_token_kFinalization;
    ts_external_token_kImplementation; ts_external_token_kIn;
    ts_external_token_kInitialization; ts_external_token_kInterface;
    ts_external_token_kIs; ts_external_token_kMod; ts_external_token_kNot;
    ts_external_token_kOr; ts_external_token_kShl; ts_external_token_kShr;
    ts_external_token_kXor];
   [ts_external_token__literalStringMultiline; ts_external_token_kAnd;
    ts_external_token_kAs; ts_external_token_kDiv; ts_external_token_kDo;
    ts_external_token_kIn; ts_external_token_kIs; ts_external_token_kMod;
    ts_external_token_kNot; ts_external_token_kOr; ts_external_token_kShl;
    ts_external_token_kShr; ts_external_token_kXor];
   [ts_external_token_kGeneric; ts_external_token_kOperator;
    ts_external_token_kBegin; ts_external_token_kClass;
    ts_external_token_kConst; ts_external_token_kConstructor;
    ts_external_token_kDestructor; ts_external_token_kExports;
    ts_external_token_kFunction; ts_external_token_kLabel;
    ts_external_token_kProcedure; ts_external_token_kResourcestring;
    ts_external_token_kThreadvar; ts_external_token_kType;
    ts_external_token_kUses; ts_external_token_kVar];
   [ts_external_token_identifier; ts_external_token_kAnd;
    ts_external_token_kAs; ts_external_token_kDiv; ts_external_token_kEnd;
    ts_external_token_kFinalization; ts_external_token_kImplementation;
    ts_external_token_kIn; ts_external_token_kInitialization;
    ts_external_token_kInterface; ts_external_token_kIs;
    ts_external_token_kMod; ts_external_token_kNot; ts_external_token_kOr;
    ts_external_token_kShl; ts_external_token_kShr; ts_external_token_kXor];
   [ts_external_token_identifier; ts_external_token_kRead;
    ts_external_token_kWrite; ts_external_token_kImplements;
    ts_external_token_kDefault; ts_external_token_kNodefault;
    ts_external_token_kStored; ts_external_token_kIndex;
    ts_external_token_kDispId; ts_external_token_kAnd; ts_external_token_kAs;
    ts_external_token_kDiv; ts_external_token_kIn; ts_external_token_kIs;
    ts_external_token_kMod; ts_external_token_kNot; ts_external_token_kOr;
    ts_external_token_kShl; ts_external_token_kShr; ts_external_token_kXor]
  ].

(** States 162 to 168. *)
Definition ts_external_scanner_states_162 : list (list ts_external_token) :=
  [
   [ts_external_token_kRead; ts_external_token_kWrite;
    ts_external_token_kImplements; ts_external_token_kDefault;
    ts_external_token_kNodefault; ts_external_token_kStored;
    ts_external_token_kIndex; ts_external_token_kDispId;
    ts_external_token_kAnd; ts_external_token_kAs; ts_external_token_kDiv;
    ts_external_token_kIn; ts_external_token_kIs; ts_external_token_kMod;
    ts_external_token_kNot; ts_external_token_kOf; ts_external_token_kOr;
    ts_external_token_kShl; ts_external_token_kShr; ts_external_token_kXor];
   [ts_external_token__literalStringMultiline; ts_external_token_kOtherwise;
    ts_external_token_kRaiseAt; ts_external_token_kAnd; ts_external_token_kAs;
    ts_external_token_kDiv; ts_external_token_kElse; ts_external_token_kEnd;
    ts_external_token_kIn; ts_external_token_kIs; ts_external_token_kMod;
    ts_external_token_kNot; ts_external_token_kOr; ts_external_token_kShl;
    ts_external_token_kShr; ts_external_token_kXor];
   [ts_external_token_kRead; ts_external_token_kWrite;
    ts_external_token_kImplements; ts_external_token_kDefault;
    ts_external_token_kNodefault; ts_external_token_kStored;
    ts_external_token_kIndex; ts_external_token_kDispId;
    ts_external_token_kAnd; ts_external_token_kAs; ts_external_token_kDiv;
    ts_external_token_kIn; ts_external_token_kIs; ts_external_token_kMod;
    ts_external_token_kNot; ts_external_token_kOr; ts_external_token_kShl;
    ts_external_token_kShr; ts_external_token_kXor];
   [ts_external_token__literalStringMultiline; ts_external_token_kRaiseAt;
    ts_external_token_kAnd; ts_external_token_kAs; ts_external_token_kDiv;
    ts_external_token_kElse; ts_external_token_kExcept;
    ts_external_token_kFinally; ts_external_token_kIn; ts_external_token_kIs;
    ts_external_token_kMod; ts_external_token_kNot; ts_external_token_kOr;
    ts_external_token_kShl; ts_external_token_kShr; ts_external_token_kXor];
   [ts_external_token_identifier; ts_external_token_kRead;
    ts_external_token_kWrite; ts_external_token_kImplements;
    ts_external_token_kDefault; ts_external_token_kNodefault;
    ts_external_token_kStored; ts_external_token_kIndex;
    ts_external_token_kDispId; ts_external_token_kAnd; ts_external_token_kAs;
    ts_external_token_kDiv; ts_external_token_kIn; ts_external_token_kIs;
    ts_external_token_kMod; ts_external_token_kNot; ts_external_token_kOf;
    ts_external_token_kOr; ts_external_token_kShl; ts_external_token_kShr;
    ts_external_token_kXor];
   [ts_external_token_kOtherwise; ts_external_token_kAnd;
    ts_external_token_kAs; ts_external_token_kDiv; ts_external_token_kElse;
    ts_external_token_kEnd; ts_external_token_kIn; ts_external_token_kIs;
    ts_external_token_kMod; ts_external_token_kNot; ts_external_token_kOr;
    ts_external_token_kShl; ts_external_token_kShr; ts_external_token_kXor];
   [ts_external_token_identifier; ts_external_token_kOtherwise;
    ts_external_token_kAnd; ts_external_token_kAs; ts_external_token_kDiv;
    ts_external_token_kElse; ts_external_token_kEnd; ts_external_token_kIn;
    ts_external_token_kIs; ts_external_token_kMod; ts_external_token_kNot;
    ts_external_token_kOr; ts_external_token_kShl; ts_external_token_kShr;
    ts_external_token_kXor]
  ].

(** States 169 to 177. *)
Definition ts_external_scanner_states_169 : list (list ts_external_token) :=
  [
   [ts_external_token_kAnd; ts_external_token_kAs; ts_external_token_kDiv;
    ts_external_token_kElse; ts_external_token_kExcept;
    ts_external_token_kFinally; ts_external_token_kIn; ts_external_token_kIs;
    ts_external_token_kMod; ts_external_token_kNot; ts_external_token_kOr;
    ts_external_token_kShl; ts_external_token_kShr; ts_external_token_kXor];
   [ts_external_token_identifier; ts_external_token_kAnd;
    ts_external_token_kAs; ts_external_token_kDiv; ts_external_token_kElse;
    ts_external_token_kExcept; ts_external_token_kFinally;
    ts_external_token_kIn; ts_external_token_kIs; ts_external_token_kMod;
    ts_external_token_kNot; ts_external_token_kOr; ts_external_token_kShl;
    ts_external_token_kShr; ts_external_token_kXor];
   [ts_external_token__literalStringMultiline; ts_external_token_kRaiseAt;
    ts_external_token_kAnd; ts_external_token_kAs; ts_external_token_kDiv;
    ts_external_token_kElse; ts_external_token_kEnd; ts_external_token_kIn;
    ts_external_token_kIs; ts_external_token_kMod; ts_external_token_kNot;
    ts_external_token_kOr; ts_external_token_kShl; ts_external_token_kShr;
    ts_external_token_kXor];
   [ts_external_token__literalStringMultiline; ts_external_token_kRaiseAt;
    ts_external_token_kAnd; ts_external_token_kAs; ts_external_token_kDiv;
    ts_external_token_kElse; ts_external_token_kIn; ts_external_token_kIs;
    ts_external_token_kMod; ts_external_token_kNot; ts_external_token_kOr;
    ts_external_token_kShl; ts_external_token_kShr; ts_external_token_kUntil;
    ts_external_token_kXor];
   [ts_external_token__literalStringMultiline; ts_external_token_kIndex;
    ts_external_token_kName; ts_external_token_kDelayed;
    ts_external_token_kAnd; ts_external_token_kAs; ts_external_token_kDiv;
    ts_external_token_kIn; ts_external_token_kIs; ts_external_token_kMod;
    ts_external_token_kNot; ts_external_token_kOr; ts_external_token_kShl;
    ts_external_token_kShr; ts_external_token_kXor];
   [ts_external_token__literalStringMultiline; ts_external_token_kAnd;
    ts_external_token_kAs; ts_external_token_kDiv; ts_external_token_kIn;
    ts_external_token_kIs; ts_external_token_kMod; ts_external_token_kNot;
    ts_external_token_kOf; ts_external_token_kOr; ts_external_token_kShl;
    ts_external_token_kShr; ts_external_token_kXor];
   [ts_external_token__literalStringMultiline; ts_external_token_kRaiseAt;
    ts_external_token_kAnd; ts_external_token_kAs; ts_external_token_kDiv;
    ts_external_token_kExcept; ts_external_token_kFinally;
    ts_external_token_kIn; ts_external_token_kIs; ts_external_token_kMod;
    ts_external_token_kNot; ts_external_token_kOr; ts_external_token_kShl;
    ts_external_token_kShr; ts_external_token_kXor];
   [ts_external_token__literalStringMultiline; ts_external_token_kIndex;
    ts_external_token_kName; ts_external_token_kAnd; ts_external_token_kAs;
    ts_external_token_kDiv; ts_external_token_kIn; ts_external_token_kIs;
    ts_external_token_kMod; ts_external_token_kNot; ts_external_token_kOr;
    ts_external_token_kShl; ts_external_token_kShr; ts_external_token_kXor];
   [ts_external_token_kAnd; ts_external_token_kAs; ts_external_token_kDiv;
    ts_external_token_kElse; ts_external_token_kIn; ts_external_token_kIs;
    ts_external_token_kMod; ts_external_token_kNot; ts_external_token_kOr;
    ts_external_token_kShl; ts_external_token_kShr; ts_external_token_kUntil;
    ts_external_token_kXor]
  ].

(** States 178 to 186. *)
Definition ts_external_scanner_states_178 : list (list ts_external_token) :=
  [
   [ts_external_token__literalStringMultiline; ts_external_token_kRaiseAt;
    ts_external_token_kAnd; ts_external_token_kAs; ts_external_token_kDiv;
    ts_external_token_kElse; ts_external_token_kIn; ts_external_token_kIs;
    ts_external_token_kMod; ts_external_token_kNot; ts_external_token_kOr;
    ts_external_token_kShl; ts_external_token_kShr; ts_external_token_kXor];
   [ts_external_token_kAnd; ts_external_token_kAs; ts_external_token_kDiv;
    ts_external_token_kExcept; ts_external_token_kFinally;
    ts_external_token_kIn; ts_external_token_kIs; ts_external_token_kMod;
    ts_external_token_kNot; ts_external_token_kOr; ts_external_token_kShl;
    ts_external_token_kShr; ts_external_token_kXor];
   [ts_external_token_kRaiseAt; ts_external_token_kAnd; ts_external_token_kAs;
    ts_external_token_kDiv; ts_external_token_kElse; ts_external_token_kEnd;
    ts_external_token_kFinalization; ts_external_token_kImplementation;
    ts_external_token_kIn; ts_external_token_kInitialization;
    ts_external_token_kInterface; ts_external_token_kIs;
    ts_external_token_kMod; ts_external_token_kNot; ts_external_token_kOr;
    ts_external_token_kShl; ts_external_token_kShr; ts_external_token_kXor];
   [ts_external_token_identifier; ts_external_token_kRaiseAt;
    ts_external_token_kAnd; ts_external_token_kAs; ts_external_token_kDiv;
    ts_external_token_kElse; ts_external_token_kEnd;
    ts_external_token_kFinalization; ts_external_token_kImplementation;
    ts_external_token_kIn; ts_external_token_kInitialization;
    ts_external_token_kInterface; ts_external_token_kIs;
    ts_external_token_kMod; ts_external_token_kNot; ts_external_token_kOr;
    ts_external_token_kShl; ts_external_token_kShr; ts_external_token_kXor];
   [ts_external_token_kAnd; ts_external_token_kAs; ts_external_token_kDiv;
    ts_external_token_kIn; ts_external_token_kIs; ts_external_token_kMod;
    ts_external_token_kNot; ts_external_token_kOr; ts_external_token_kShl;
    ts_external_token_kShr; ts_external_token_kXor];
   [ts_external_token__literalStringMultiline; ts_external_token_kRaiseAt;
    ts_external_token_kAnd; ts_external_token_kAs; ts_external_token_kDiv;
    ts_external_token_kEnd; ts_external_token_kIn; ts_external_token_kIs;
    ts_external_token_kMod; ts_external_token_kNot; ts_external_token_kOr;
    ts_external_token_kShl; ts_external_token_kShr; ts_external_token_kXor];
   [ts_external_token__literalStringMultiline; ts_external_token_kAbsolute;
    ts_external_token_kAnd; ts_external_token_kAs; ts_external_token_kDiv;
    ts_external_token_kIn; ts_external_token_kIs; ts_external_token_kMod;
    ts_external_token_kNot; ts_external_token_kOf; ts_external_token_kOr;
    ts_external_token_kShl; ts_external_token_kShr; ts_external_token_kXor];
   [ts_external_token_identifier; ts_external_token_kAnd;
    ts_external_token_kAs; ts_external_token_kDiv; ts_external_token_kExcept;
    ts_external_token_kFinally; ts_external_token_kIn; ts_external_token_kIs;
    ts_external_token_kMod; ts_external_token_kNot; ts_external_token_kOr;
    ts_external_token_kShl; ts_external_token_kShr; ts_external_token_kXor];
   [ts_external_token_identifier; ts_external_token_kAnd;
    ts_external_token_kAs; ts_external_token_kDiv; ts_external_token_kElse;
    ts_external_token_kIn; ts_external_token_kIs; ts_external_token_kMod;
    ts_external_token_kNot; ts_external_token_kOr; ts_external_token_kShl;
    ts_external_token_kShr; ts_external_token_kUntil; ts_external_token_kXor]
  ].

(** States 187 to 194. *)
Definition ts_external_scanner_states_187 : list (list ts_external_token) :=
  [
   [ts_external_token__literalStringMultiline; ts_external_token_kRaiseAt;
    ts_external_token_kAnd; ts_external_token_kAs; ts_external_token_kDiv;
    ts_external_token_kIn; ts_external_token_kIs; ts_external_token_kMod;
    ts_external_token_kNot; ts_external_token_kOr; ts_external_token_kShl;
    ts_external_token_kShr; ts_external_token_kUntil; ts_external_token_kXor];
   [ts_external_token_kAnd; ts_external_token_kAs; ts_external_token_kDiv;
    ts_external_token_kElse; ts_external_token_kEnd; ts_external_token_kIn;
    ts_external_token_kIs; ts_external_token_kMod; ts_external_token_kNot;
    ts_external_token_kOr; ts_external_token_kShl; ts_external_token_kShr;
    ts_external_token_kXor];
   [ts_external_token_identifier; ts_external_token_kAnd;
    ts_external_token_kAs; ts_external_token_kDiv; ts_external_token_kElse;
    ts_external_token_kEnd; ts_external_token_kIn; ts_external_token_kIs;
    ts_external_token_kMod; ts_external_token_kNot; ts_external_token_kOr;
    ts_external_token_kShl; ts_external_token_kShr; ts_external_token_kXor];
   [ts_external_token_identifier; ts_external_token_kGeneric;
    ts_external_token_kOperator; ts_external_token_kBegin;
    ts_external_token_kClass; ts_external_token_kConst;
    ts_external_token_kConstructor; ts_external_token_kDestructor;
    ts_external_token_kEnd; ts_external_token_kExports;
    ts_external_token_kFinalization; ts_external_token_kFunction;
    ts_external_token_kImplementation; ts_external_token_kInitialization;
    ts_external_token_kInterface; ts_external_token_kLabel;
    ts_external_token_kProcedure; ts_external_token_kResourcestring;
    ts_external_token_kThreadvar; ts_external_token_kType;
    ts_external_token_kUses; ts_external_token_kVar];
   [ts_external_token_kRaiseAt; ts_external_token_kAnd; ts_external_token_kAs;
    ts_external_token_kDiv; ts_external_token_kEnd;
    ts_external_token_kFinalization; ts_external_token_kImplementation;
    ts_external_token_kIn; ts_external_token_kInitialization;
    ts_external_token_kInterface; ts_external_token_kIs;
    ts_external_token_kMod; ts_external_token_kNot; ts_external_token_kOr;
    ts_external_token_kShl; ts_external_token_kShr; ts_external_token_kXor];
   [ts_external_token_kAnd; ts_external_token_kAs; ts_external_token_kDiv;
    ts_external_token_kElse; ts_external_token_kIn; ts_external_token_kIs;
    ts_external_token_kMod; ts_external_token_kNot; ts_external_token_kOr;
    ts_external_token_kShl; ts_external_token_kShr; ts_external_token_kXor];
   [ts_external_token_identifier; ts_external_token_kRaiseAt;
    ts_external_token_kAnd; ts_external_token_kAs; ts_external_token_kDiv;
    ts_external_token_kEnd; ts_external_token_kFinalization;
    ts_external_token_kImplementation; ts_external_token_kIn;
    ts_external_token_kInitialization; ts_external_token_kInterface;
    ts_external_token_kIs; ts_external_token_kMod; ts_external_token_kNot;
    ts_external_token_kOr; ts_external_token_kShl; ts_external_token_kShr;
    ts_external_token_kXor];
   [ts_external_token_kAnd; ts_external_token_kAs; ts_external_token_kDiv;
    ts_external_token_kEnd; ts_external_token_kIn; ts_external_token_kIs;
    ts_external_token_kMod; ts_external_token_kNot; ts_external_token_kOr;
    ts_external_token_kShl; ts_external_token_kShr; ts_external_token_kXor]
  ].

(** States 195 to 203. *)
Definition ts_external_scanner_states_195 : list (list ts_external_token) :=
  [
   [ts_external_token_identifier; ts_external_token_kAnd;
    ts_external_token_kAs; ts_external_token_kDiv; ts_external_token_kEnd;
    ts_external_token_kIn; ts_external_token_kIs; ts_external_token_kMod;
    ts_external_token_kNot; ts_external_token_kOr; ts_external_token_kShl;
    ts_external_token_kShr; ts_external_token_kXor];
   [ts_external_token_kAnd; ts_external_token_kAs; ts_external_token_kDiv;
    ts_external_token_kIn; ts_external_token_kIs; ts_external_token_kMod;
    ts_external_token_kNot; ts_external_token_kOr; ts_external_token_kShl;
    ts_external_token_kShr; ts_external_token_kUntil; ts_external_token_kXor];
   [ts_external_token_identifier; ts_external_token_kGeneric;
    ts_external_token_kOperator; ts_external_token_kClass;
    ts_external_token_kConst; ts_external_token_kConstructor;
    ts_external_token_kDestructor; ts_external_token_kEnd;
    ts_external_token_kExports; ts_external_token_kFinalization;
    ts_external_token_kFunction; ts_external_token_kImplementation;
    ts_external_token_kInitialization; ts_external_token_kInterface;
    ts_external_token_kLabel; ts_external_token_kProcedure;
    ts_external_token_kProperty; ts_external_token_kResourcestring;
    ts_external_token_kThreadvar; ts_external_token_kType;
    ts_external_token_kUses; ts_external_token_kVar];
   [ts_external_token_kAbsolute; ts_external_token_kAnd;
    ts_external_token_kAs; ts_external_token_kDiv; ts_external_token_kIn;
    ts_external_token_kIs; ts_external_token_kMod; ts_external_token_kNot;
    ts_external_token_kOr; ts_external_token_kShl; ts_external_token_kShr;
    ts_external_token_kXor];
   [ts_external_token_identifier; ts_external_token_kAnd;
    ts_external_token_kAs; ts_external_token_kDiv; ts_external_token_kIn;
    ts_external_token_kIs; ts_external_token_kMod; ts_external_token_kNot;
    ts_external_token_kOr; ts_external_token_kShl; ts_external_token_kShr;
    ts_external_token_kUntil; ts_external_token_kXor];
   [ts_external_token_identifier; ts_external_token_kAbsolute;
    ts_external_token_kAnd; ts_external_token_kAs; ts_external_token_kDiv;
    ts_external_token_kIn; ts_external_token_kIs; ts_external_token_kMod;
    ts_external_token_kNot; ts_external_token_kOr; ts_external_token_kShl;
    ts_external_token_kShr; ts_external_token_kXor];
   [ts_external_token_identifier; ts_external_token_kAnd;
    ts_external_token_kAs; ts_external_token_kDiv; ts_external_token_kElse;
    ts_external_token_kIn; ts_external_token_kIs; ts_external_token_kMod;
    ts_external_token_kNot; ts_external_token_kOr; ts_external_token_kShl;
    ts_external_token_kShr; ts_external_token_kXor];
   [ts_external_token__literalStringMultiline; ts_external_token_kRaiseAt;
    ts_external_token_kAnd; ts_external_token_kAs; ts_external_token_kDiv;
    ts_external_token_kIn; ts_external_token_kIs; ts_external_token_kMod;
    ts_external_token_kNot; ts_external_token_kOr; ts_external_token_kShl;
    ts_external_token_kShr; ts_external_token_kXor];
   [ts_external_token__literalStringMultiline; ts_external_token_kDelayed;
    ts_external_token_kAnd; ts_external_token_kAs; ts_external_token_kDiv;
    ts_external_token_kIn; ts_external_token_kIs; ts_external_token_kMod;
    ts_external_token_kNot; ts_external_token_kOr; ts_external_token_kShl;
    ts_external_token_kShr; ts_external_token_kXor]
  ].

(** States 204 to 212. *)
Definition ts_external_scanner_states_204 : list (list ts_external_token) :=
  [
   [ts_external_token__literalStringMultiline; ts_external_token_kAnd;
    ts_external_token_kAs; ts_external_token_kDiv; ts_external_token_kDownto;
    ts_external_token_kIn; ts_external_token_kIs; ts_external_token_kMod;
    ts_external_token_kNot; ts_external_token_kOr; ts_external_token_kShl;
    ts_external_token_kShr; ts_external_token_kTo; ts_external_token_kXor];
   [ts_external_token_identifier; ts_external_token_kAnd;
    ts_external_token_kAs; ts_external_token_kDiv; ts_external_token_kIn;
    ts_external_token_kIs; ts_external_token_kMod; ts_external_token_kNot;
    ts_external_token_kOr; ts_external_token_kShl; ts_external_token_kShr;
    ts_external_token_kXor];
   [ts_external_token_kAnd; ts_external_token_kAs; ts_external_token_kDiv;
    ts_external_token_kDo; ts_external_token_kIn; ts_external_token_kIs;
    ts_external_token_kMod; ts_external_token_kNot; ts_external_token_kOr;
    ts_external_token_kShl; ts_external_token_kShr; ts_external_token_kXor];
   [ts_external_token_identifier; ts_external_token_kAnd;
    ts_external_token_kAs; ts_external_token_kDiv; ts_external_token_kDo;
    ts_external_token_kIn; ts_external_token_kIs; ts_external_token_kMod;
    ts_external_token_kNot; ts_external_token_kOr; ts_external_token_kShl;
    ts_external_token_kShr; ts_external_token_kXor];
   [ts_external_token__literalStringMultiline; ts_external_token_kAnd;
    ts_external_token_kAs; ts_external_token_kDiv; ts_external_token_kIn;
    ts_external_token_kIs; ts_external_token_kMod; ts_external_token_kNot;
    ts_external_token_kOr; ts_external_token_kShl; ts_external_token_kShr;
    ts_external_token_kThen; ts_external_token_kXor];
   [ts_external_token_kRaiseAt; ts_external_token_kAnd; ts_external_token_kAs;
    ts_external_token_kDiv; ts_external_token_kElse;
    ts_external_token_kExcept; ts_external_token_kFinally;
    ts_external_token_kIn; ts_external_token_kIs; ts_external_token_kMod;
    ts_external_token_kNot; ts_external_token_kOr; ts_external_token_kShl;
    ts_external_token_kShr; ts_external_token_kXor];
   [ts_external_token_kOtherwise; ts_external_token_kRaiseAt;
    ts_external_token_kAnd; ts_external_token_kAs; ts_external_token_kDiv;
    ts_external_token_kElse; ts_external_token_kEnd; ts_external_token_kIn;
    ts_external_token_kIs; ts_external_token_kMod; ts_external_token_kNot;
    ts_external_token_kOr; ts_external_token_kShl; ts_external_token_kShr;
    ts_external_token_kXor];
   [ts_external_token_identifier; ts_external_token_kAnd;
    ts_external_token_kDiv; ts_external_token_kIn; ts_external_token_kMod;
    ts_external_token_kNot; ts_external_token_kOr; ts_external_token_kShl;
    ts_external_token_kShr; ts_external_token_kXor];
   [ts_external_token_identifier; ts_external_token_kRaiseAt;
    ts_external_token_kAnd; ts_external_token_kAs; ts_external_token_kDiv;
    ts_external_token_kElse; ts_external_token_kExcept;
    ts_external_token_kFinally; ts_external_token_kIn; ts_external_token_kIs;
    ts_external_token_kMod; ts_external_token_kNot; ts_external_token_kOr;
    ts_external_token_kShl; ts_external_token_kShr; ts_external_token_kXor]
  ].

(** States 213 to 221. *)
Definition ts_external_scanner_states_213 : list (list ts_external_token) :=
  [
   [ts_external_token_identifier; ts_external_token_kOtherwise;
    ts_external_token_kRaiseAt; ts_external_token_kAnd; ts_external_token_kAs;
    ts_external_token_kDiv; ts_external_token_kElse; ts_external_token_kEnd;
    ts_external_token_kIn; ts_external_token_kIs; ts_external_token_kMod;
    ts_external_token_kNot; ts_external_token_kOr; ts_external_token_kShl;
    ts_external_token_kShr; ts_external_token_kXor];
   [ts_external_token_kRaiseAt; ts_external_token_kAnd; ts_external_token_kAs;
    ts_external_token_kDiv; ts_external_token_kElse; ts_external_token_kEnd;
    ts_external_token_kIn; ts_external_token_kIs; ts_external_token_kMod;
    ts_external_token_kNot; ts_external_token_kOr; ts_external_token_kShl;
    ts_external_token_kShr; ts_external_token_kXor];
   [ts_external_token_identifier; ts_external_token_kRaiseAt;
    ts_external_token_kAnd; ts_external_token_kAs; ts_external_token_kDiv;
    ts_external_token_kElse; ts_external_token_kEnd; ts_external_token_kIn;
    ts_external_token_kIs; ts_external_token_kMod; ts_external_token_kNot;
    ts_external_token_kOr; ts_external_token_kShl; ts_external_token_kShr;
    ts_external_token_kXor];
   [ts_external_token_kAnd; ts_external_token_kAs; ts_external_token_kDiv;
    ts_external_token_kIn; ts_external_token_kIs; ts_external_token_kMod;
    ts_external_token_kNot; ts_external_token_kOf; ts_external_token_kOr;
    ts_external_token_kShl; ts_external_token_kShr; ts_external_token_kXor];
   [ts_external_token_kIndex; ts_external_token_kName;
    ts_external_token_kDelayed; ts_external_token_kAnd; ts_external_token_kAs;
    ts_external_token_kDiv; ts_external_token_kIn; ts_external_token_kIs;
    ts_external_token_kMod; ts_external_token_kNot; ts_external_token_kOr;
    ts_external_token_kShl; ts_external_token_kShr; ts_external_token_kXor];
   [ts_external_token_identifier; ts_external_token_kIndex;
    ts_external_token_kName; ts_external_token_kDelayed;
    ts_external_token_kAnd; ts_external_token_kAs; ts_external_token_kDiv;
    ts_external_token_kIn; ts_external_token_kIs; ts_external_token_kMod;
    ts_external_token_kNot; ts_external_token_kOr; ts_external_token_kShl;
    ts_external_token_kShr; ts_external_token_kXor];
   [ts_external_token_identifier; ts_external_token_kAnd;
    ts_external_token_kAs; ts_external_token_kDiv; ts_external_token_kIn;
    ts_external_token_kIs; ts_external_token_kMod; ts_external_token_kNot;
    ts_external_token_kOf; ts_external_token_kOr; ts_external_token_kShl;
    ts_external_token_kShr; ts_external_token_kXor];
   [ts_external_token_kRaiseAt; ts_external_token_kAnd; ts_external_token_kAs;
    ts_external_token_kDiv; ts_external_token_kExcept;
    ts_external_token_kFinally; ts_external_token_kIn; ts_external_token_kIs;
    ts_external_token_kMod; ts_external_token_kNot; ts_external_token_kOr;
    ts_external_token_kShl; ts_external_token_kShr; ts_external_token_kXor];
   [ts_external_token_identifier; ts_external_token_kRaiseAt;
    ts_external_token_kAnd; ts_external_token_kAs; ts_external_token_kDiv;
    ts_external_token_kExcept; ts_external_token_kFinally;
    ts_external_token_kIn; ts_external_token_kIs; ts_external_token_kMod;
    ts_external_token_kNot; ts_external_token_kOr; ts_external_token_kShl;
    ts_external_token_kShr; ts_external_token_kXor]
  ].

(** States 222 to 229. *)
Definition ts_external_scanner_states_222 : list (list ts_external_token) :=
  [
   [ts_external_token_kIndex; ts_external_token_kName; ts_external_token_kAnd;
    ts_external_token_kAs; ts_external_token_kDiv; ts_external_token_kIn;
    ts_external_token_kIs; ts_external_token_kMod; ts_external_token_kNot;
    ts_external_token_kOr; ts_external_token_kShl; ts_external_token_kShr;
    ts_external_token_kXor];
   [ts_external_token_identifier; ts_external_token_kIndex;
    ts_external_token_kName; ts_external_token_kAnd; ts_external_token_kAs;
    ts_external_token_kDiv; ts_external_token_kIn; ts_external_token_kIs;
    ts_external_token_kMod; ts_external_token_kNot; ts_external_token_kOr;
    ts_external_token_kShl; ts_external_token_kShr; ts_external_token_kXor];
   [ts_external_token_kRaiseAt; ts_external_token_kAnd; ts_external_token_kAs;
    ts_external_token_kDiv; ts_external_token_kElse; ts_external_token_kIn;
    ts_external_token_kIs; ts_external_token_kMod; ts_external_token_kNot;
    ts_external_token_kOr; ts_external_token_kShl; ts_external_token_kShr;
    ts_external_token_kUntil; ts_external_token_kXor];
   [ts_external_token_identifier; ts_external_token_kRaiseAt;
    ts_external_token_kAnd; ts_external_token_kAs; ts_external_token_kDiv;
    ts_external_token_kElse; ts_external_token_kIn; ts_external_token_kIs;
    ts_external_token_kMod; ts_external_token_kNot; ts_external_token_kOr;
    ts_external_token_kShl; ts_external_token_kShr; ts_external_token_kUntil;
    ts_external_token_kXor];
   [ts_external_token_kRaiseAt; ts_external_token_kAnd; ts_external_token_kAs;
    ts_external_token_kDiv; ts_external_token_kEnd; ts_external_token_kIn;
    ts_external_token_kIs; ts_external_token_kMod; ts_external_token_kNot;
    ts_external_token_kOr; ts_external_token_kShl; ts_external_token_kShr;
    ts_external_token_kXor];
   [ts_external_token_identifier; ts_external_token_kGeneric;
    ts_external_token_kOperator; ts_external_token_kPublished;
    ts_external_token_kPublic; ts_external_token_kProtected;
    ts_external_token_kPrivate; ts_external_token_kStrict;
    ts_external_token_kRequired; ts_external_token_kOptional;
    ts_external_token_kDeprecated; ts_external_token_kCase;
    ts_external_token_kClass; ts_external_token_kConst;
    ts_external_token_kConstructor; ts_external_token_kDestructor;
    ts_external_token_kEnd; ts_external_token_kFunction;
    ts_external_token_kProcedure; ts_external_token_kProperty;
    ts_external_token_kResourcestring; ts_external_token_kThreadvar;
    ts_external_token_kType; ts_external_token_kVar];
   [ts_external_token_kRaiseAt; ts_external_token_kAnd; ts_external_token_kAs;
    ts_external_token_kDiv; ts_external_token_kIn; ts_external_token_kIs;
    ts_external_token_kMod; ts_external_token_kNot; ts_external_token_kOr;
    ts_external_token_kShl; ts_external_token_kShr; ts_external_token_kUntil;
    ts_external_token_kXor];
   [ts_external_token_identifier; ts_external_token_kGeneric;
    ts_external_token_kOperator; ts_external_token_kBegin;
    ts_external_token_kClass; ts_external_token_kConst;
    ts_external_token_kConstructor; ts_external_token_kDestructor;
    ts_external_token_kEnd; ts_external_token_kExports;
    ts_external_token_kFunction; ts_external_token_kLabel;
    ts_external_token_kProcedure; ts_external_token_kResourcestring;
    ts_external_token_kThreadvar; ts_external_token_kType;
    ts_external_token_kUses; ts_external_token_kVar]
  ].

(** States 230 to 239. *)
Definition ts_external_scanner_states_230 : list (list ts_external_token) :=
  [
   [ts_external_token_identifier; ts_external_token_kRaiseAt;
    ts_external_token_kAnd; ts_external_token_kAs; ts_external_token_kDiv;
    ts_external_token_kIn; ts_external_token_kIs; ts_external_token_kMod;
    ts_external_token_kNot; ts_external_token_kOr; ts_external_token_kShl;
    ts_external_token_kShr; ts_external_token_kUntil; ts_external_token_kXor];
   [ts_external_token_identifier; ts_external_token_kAbsolute;
    ts_external_token_kAnd; ts_external_token_kAs; ts_external_token_kDiv;
    ts_external_token_kIn; ts_external_token_kIs; ts_external_token_kMod;
    ts_external_token_kNot; ts_external_token_kOf; ts_external_token_kOr;
    ts_external_token_kShl; ts_external_token_kShr; ts_external_token_kXor];
   [ts_external_token_kAbsolute; ts_external_token_kAnd;
    ts_external_token_kAs; ts_external_token_kDiv; ts_external_token_kIn;
    ts_external_token_kIs; ts_external_token_kMod; ts_external_token_kNot;
    ts_external_token_kOf; ts_external_token_kOr; ts_external_token_kShl;
    ts_external_token_kShr; ts_external_token_kXor];
   [ts_external_token_identifier; ts_external_token_kRaiseAt;
    ts_external_token_kAnd; ts_external_token_kAs; ts_external_token_kDiv;
    ts_external_token_kElse; ts_external_token_kIn; ts_external_token_kIs;
    ts_external_token_kMod; ts_external_token_kNot; ts_external_token_kOr;
    ts_external_token_kShl; ts_external_token_kShr; ts_external_token_kXor];
   [ts_external_token_kRaiseAt; ts_external_token_kAnd; ts_external_token_kAs;
    ts_external_token_kDiv; ts_external_token_kElse; ts_external_token_kIn;
    ts_external_token_kIs; ts_external_token_kMod; ts_external_token_kNot;
    ts_external_token_kOr; ts_external_token_kShl; ts_external_token_kShr;
    ts_external_token_kXor];
   [ts_external_token_identifier; ts_external_token_kGeneric;
    ts_external_token_kOperator; ts_external_token_kBegin;
    ts_external_token_kClass; ts_external_token_kConst;
    ts_external_token_kConstructor; ts_external_token_kDestructor;
    ts_external_token_kExports; ts_external_token_kFunction;
    ts_external_token_kLabel; ts_external_token_kProcedure;
    ts_external_token_kResourcestring; ts_external_token_kThreadvar;
    ts_external_token_kType; ts_external_token_kUses; ts_external_token_kVar];
   [ts_external_token_identifier; ts_external_token_kRaiseAt;
    ts_external_token_kAnd; ts_external_token_kAs; ts_external_token_kDiv;
    ts_external_token_kEnd; ts_external_token_kIn; ts_external_token_kIs;
    ts_external_token_kMod; ts_external_token_kNot; ts_external_token_kOr;
    ts_external_token_kShl; ts_external_token_kShr; ts_external_token_kXor];
   [ts_external_token_ppFragmentExpr;
    ts_external_token__literalStringMultiline; ts_external_token_identifier;
    ts_external_token_kString];
   [ts_external_token_kRaiseAt; ts_external_token_kAnd; ts_external_token_kAs;
    ts_external_token_kDiv; ts_external_token_kIn; ts_external_token_kIs;
    ts_external_token_kMod; ts_external_token_kNot; ts_external_token_kOr;
    ts_external_token_kShl; ts_external_token_kShr; ts_external_token_kXor];
   [ts_external_token_identifier; ts_external_token_kRaiseAt;
    ts_external_token_kAnd; ts_external_token_kAs; ts_external_token_kDiv;
    ts_external_token_kIn; ts_external_token_kIs; ts_external_token_kMod;
    ts_external_token_kNot; ts_external_token_kOr; ts_external_token_kShl;
    ts_external_token_kShr; ts_external_token_kXor]
  ].

(** States 240 to 247. *)
Definition ts_external_scanner_states_240 : list (list ts_external_token) :=
  [
   [ts_external_token_kDelayed; ts_external_token_kAnd; ts_external_token_kAs;
    ts_external_token_kDiv; ts_external_token_kIn; ts_external_token_kIs;
    ts_external_token_kMod; ts_external_token_kNot; ts_external_token_kOr;
    ts_external_token_kShl; ts_external_token_kShr; ts_external_token_kXor];
   [ts_external_token_identifier; ts_external_token_kDelayed;
    ts_external_token_kAnd; ts_external_token_kAs; ts_external_token_kDiv;
    ts_external_token_kIn; ts_external_token_kIs; ts_external_token_kMod;
    ts_external_token_kNot; ts_external_token_kOr; ts_external_token_kShl;
    ts_external_token_kShr; ts_external_token_kXor];
   [ts_external_token_kAnd; ts_external_token_kAs; ts_external_token_kDiv;
    ts_external_token_kDownto; ts_external_token_kIn; ts_external_token_kIs;
    ts_external_token_kMod; ts_external_token_kNot; ts_external_token_kOr;
    ts_external_token_kShl; ts_external_token_kShr; ts_external_token_kTo;
    ts_external_token_kXor];
   [ts_external_token_identifier; ts_external_token_kAnd;
    ts_external_token_kAs; ts_external_token_kDiv; ts_external_token_kDownto;
    ts_external_token_kIn; ts_external_token_kIs; ts_external_token_kMod;
    ts_external_token_kNot; ts_external_token_kOr; ts_external_token_kShl;
    ts_external_token_kShr; ts_external_token_kTo; ts_external_token_kXor];
   [ts_external_token_kAnd; ts_external_token_kAs; ts_external_token_kDiv;
    ts_external_token_kIn; ts_external_token_kIs; ts_external_token_kMod;
    ts_external_token_kNot; ts_external_token_kOr; ts_external_token_kShl;
    ts_external_token_kShr; ts_external_token_kThen; ts_external_token_kXor];
   [ts_external_token_identifier; ts_external_token_kAnd;
    ts_external_token_kAs; ts_external_token_kDiv; ts_external_token_kIn;
    ts_external_token_kIs; ts_external_token_kMod; ts_external_token_kNot;
    ts_external_token_kOr; ts_external_token_kShl; ts_external_token_kShr;
    ts_external_token_kThen; ts_external_token_kXor];
   [ts_external_token_kGeneric; ts_external_token_kOperator;
    ts_external_token_kForward; ts_external_token_kExternal;
    ts_external_token_kClass; ts_external_token_kConst;
    ts_external_token_kConstructor; ts_external_token_kDestructor;
    ts_external_token_kEnd; ts_external_token_kExports;
    ts_external_token_kFinalization; ts_external_token_kFunction;
    ts_external_token_kImplementation; ts_external_token_kInitialization;
    ts_external_token_kInterface; ts_external_token_kLabel;
    ts_external_token_kProcedure; ts_external_token_kProperty;
    ts_external_token_kResourcestring; ts_external_token_kThreadvar;
    ts_external_token_kType; ts_external_token_kUses; ts_external_token_kVar];
   [ts_external_token_kGeneric; ts_external_token_kOperator;
    ts_external_token_kDeprecated; ts_external_token_kAsm;
    ts_external_token_kBegin; ts_external_token_kClass;
    ts_external_token_kConst; ts_external_token_kConstructor;
    ts_external_token_kDestructor; ts_external_token_kExports;
    ts_external_token_kFunction; ts_external_token_kLabel;
    ts_external_token_kProcedure; ts_external_token_kResourcestring;
    ts_external_token_kThreadvar; ts_external_token_kType;
    ts_external_token_kUses; ts_external_token_kVar]
  ].

(** States 248 to 261. *)
Definition ts_external_scanner_states_248 : list (list ts_external_token) :=
  [
   [ts_external_token_kGeneric; ts_external_token_kOperator;
    ts_external_token_kForward; ts_external_token_kExternal;
    ts_external_token_kAsm; ts_external_token_kBegin;
    ts_external_token_kClass; ts_external_token_kConst;
    ts_external_token_kConstructor; ts_external_token_kDestructor;
    ts_external_token_kExports; ts_external_token_kFunction;
    ts_external_token_kLabel; ts_external_token_kProcedure;
    ts_external_token_kResourcestring; ts_external_token_kThreadvar;
    ts_external_token_kType; ts_external_token_kUses; ts_external_token_kVar];
   [ts_external_token__literalStringMultiline; ts_external_token_kRead;
    ts_external_token_kWrite; ts_external_token_kImplements;
    ts_external_token_kDefault; ts_external_token_kNodefault;
    ts_external_token_kStored; ts_external_token_kIndex;
    ts_external_token_kDispId; ts_external_token_kDiv; ts_external_token_kMod;
    ts_external_token_kShl; ts_external_token_kShr];
   [ts_external_token_kRead; ts_external_token_kWrite;
    ts_external_token_kImplements; ts_external_token_kDefault;
    ts_external_token_kNodefault; ts_external_token_kStored;
    ts_external_token_kIndex; ts_external_token_kDispId;
    ts_external_token_kDeprecated; ts_external_token_kDiv;
    ts_external_token_kMod; ts_external_token_kShl; ts_external_token_kShr];
   [ts_external_token_kAbsolute; ts_external_token_kDeprecated;
    ts_external_token_kDiv; ts_external_token_kMod; ts_external_token_kShl;
    ts_external_token_kShr];
   [ts_external_token_kRead; ts_external_token_kWrite;
    ts_external_token_kImplements; ts_external_token_kDefault;
    ts_external_token_kNodefault; ts_external_token_kStored;
    ts_external_token_kIndex; ts_external_token_kDispId;
    ts_external_token_kDiv; ts_external_token_kMod; ts_external_token_kShl;
    ts_external_token_kShr];
   [ts_external_token__literalStringMultiline; ts_external_token_kDiv;
    ts_external_token_kMod; ts_external_token_kShl; ts_external_token_kShr];
   [ts_external_token_kDeprecated; ts_external_token_kDiv;
    ts_external_token_kMod; ts_external_token_kShl; ts_external_token_kShr];
   [ts_external_token_kPublished; ts_external_token_kPublic;
    ts_external_token_kProtected; ts_external_token_kPrivate;
    ts_external_token_kStrict; ts_external_token_kRequired;
    ts_external_token_kOptional; ts_external_token_kCase;
    ts_external_token_kEnd];
   [ts_external_token_kDeprecated; ts_external_token_kElse;
    ts_external_token_kEnd; ts_external_token_kFinalization;
    ts_external_token_kImplementation; ts_external_token_kInitialization;
    ts_external_token_kInterface];
   [ts_external_token__literalStringMultiline; ts_external_token_kAbsolute;
    ts_external_token_kDiv; ts_external_token_kMod; ts_external_token_kShl;
    ts_external_token_kShr];
   [ts_external_token_kDeprecated; ts_external_token_kEnd;
    ts_external_token_kFinalization; ts_external_token_kImplementation;
    ts_external_token_kInitialization; ts_external_token_kInterface];
   [ts_external_token_ppFragmentExpr; ts_external_token_identifier;
    ts_external_token_kSpecialize; ts_external_token_kClass;
    ts_external_token_kConstructor; ts_external_token_kInterface;
    ts_external_token_kRecord; ts_external_token_kString];
   [ts_external_token_kDeprecated];
   [ts_external_token_kDiv; ts_external_token_kMod; ts_external_token_kShl;
    ts_external_token_kShr]
  ].

(** States 262 to 283. *)
Definition ts_external_scanner_states_262 : list (list ts_external_token) :=
  [
   [ts_external_token_kRead; ts_external_token_kWrite;
    ts_external_token_kImplements; ts_external_token_kDefault;
    ts_external_token_kNodefault; ts_external_token_kStored;
    ts_external_token_kIndex; ts_external_token_kDispId;
    ts_external_token_kDeprecated; ts_external_token_kOf];
   [ts_external_token_kRead; ts_external_token_kWrite;
    ts_external_token_kImplements; ts_external_token_kDefault;
    ts_external_token_kNodefault; ts_external_token_kStored;
    ts_external_token_kIndex; ts_external_token_kDispId];
   [ts_external_token_kRead; ts_external_token_kWrite;
    ts_external_token_kImplements; ts_external_token_kDefault;
    ts_external_token_kNodefault; ts_external_token_kStored;
    ts_external_token_kIndex; ts_external_token_kDispId;
    ts_external_token_kDeprecated];
   [ts_external_token_kOtherwise; ts_external_token_kDeprecated;
    ts_external_token_kElse; ts_external_token_kEnd];
   [ts_external_token_kAbsolute; ts_external_token_kDiv;
    ts_external_token_kMod; ts_external_token_kShl; ts_external_token_kShr];
   [ts_external_token_kDeprecated; ts_external_token_kElse;
    ts_external_token_kExcept; ts_external_token_kFinally];
   [ts_external_token_kRead; ts_external_token_kWrite;
    ts_external_token_kImplements; ts_external_token_kDefault;
    ts_external_token_kNodefault; ts_external_token_kStored;
    ts_external_token_kIndex; ts_external_token_kDispId; ts_external_token_kOf];
   [ts_external_token_kGeneric; ts_external_token_kOperator;
    ts_external_token_kClass; ts_external_token_kConstructor;
    ts_external_token_kDestructor; ts_external_token_kFunction;
    ts_external_token_kProcedure];
   [ts_external_token_identifier];
   [ts_external_token_kDeprecated; ts_external_token_kElse;
    ts_external_token_kEnd];
   [ts_external_token_kDeprecated; ts_external_token_kExcept;
    ts_external_token_kFinally];
   [ts_external_token_kDeprecated; ts_external_token_kElse;
    ts_external_token_kUntil];
   [ts_external_token_ppFragmentExpr; ts_external_token_identifier;
    ts_external_token_kSpecialize; ts_external_token_kString];
   [ts_external_token_identifier; ts_external_token_kGeneric;
    ts_external_token_kOperator; ts_external_token_kClass;
    ts_external_token_kConstructor; ts_external_token_kDestructor;
    ts_external_token_kFunction; ts_external_token_kProcedure;
    ts_external_token_kProperty];
   [ts_external_token_kAbsolute; ts_external_token_kDeprecated];
   [ts_external_token__literalStringMultiline; ts_external_token_identifier];
   [ts_external_token_kElse; ts_external_token_kEnd;
    ts_external_token_kFinalization; ts_external_token_kImplementation;
    ts_external_token_kInitialization; ts_external_token_kInterface];
   [ts_external_token_kDeprecated; ts_external_token_kElse];
   [ts_external_token_kEnd; ts_external_token_kFinalization;
    ts_external_token_kImplementation; ts_external_token_kInitialization;
    ts_external_token_kInterface];
   [ts_external_token_kDeprecated; ts_external_token_kEnd];
   [ts_external_token_kDeprecated; ts_external_token_kUntil];
   [ts_external_token_ppFragmentExpr; ts_external_token_identifier;
    ts_external_token_kString]
  ].

(** States 284 to 308. *)
Definition ts_external_scanner_states_284 : list (list ts_external_token) :=
  [
   [ts_external_token_kDeprecated; ts_external_token_kIn];
   [ts_external_token_kOperator; ts_external_token_kConst;
    ts_external_token_kConstructor; ts_external_token_kDestructor;
    ts_external_token_kFunction; ts_external_token_kProcedure;
    ts_external_token_kProperty; ts_external_token_kResourcestring;
    ts_external_token_kThreadvar; ts_external_token_kVar];
   [ts_external_token_kGeneric; ts_external_token_kOperator;
    ts_external_token_kClass; ts_external_token_kConstructor;
    ts_external_token_kDestructor; ts_external_token_kFunction;
    ts_external_token_kProcedure; ts_external_token_kProperty];
   [ts_external_token_identifier; ts_external_token_kConstref;
    ts_external_token_kOut; ts_external_token_kConst; ts_external_token_kVar];
   [ts_external_token_identifier; ts_external_token_kClass;
    ts_external_token_kConstructor; ts_external_token_kDestructor;
    ts_external_token_kFunction; ts_external_token_kProcedure];
   [ts_external_token_kOperator; ts_external_token_kConst;
    ts_external_token_kConstructor; ts_external_token_kDestructor;
    ts_external_token_kFunction; ts_external_token_kProcedure;
    ts_external_token_kResourcestring; ts_external_token_kThreadvar;
    ts_external_token_kVar];
   [ts_external_token_kDeprecated; ts_external_token_kOf];
   [ts_external_token_identifier; ts_external_token_kEnd;
    ts_external_token_kFinalization; ts_external_token_kImplementation;
    ts_external_token_kInitialization; ts_external_token_kInterface];
   [ts_external_token_identifier; ts_external_token_kIn];
   [ts_external_token_kObjcclass; ts_external_token_kObjccategory;
    ts_external_token_kObjcprotocol; ts_external_token_kArray;
    ts_external_token_kClass; ts_external_token_kDispInterface;
    ts_external_token_kInterface; ts_external_token_kObject;
    ts_external_token_kRecord];
   [ts_external_token_kOtherwise; ts_external_token_kElse;
    ts_external_token_kEnd];
   [ts_external_token_kElse; ts_external_token_kExcept;
    ts_external_token_kFinally];
   [ts_external_token_identifier; ts_external_token_kCase];
   [ts_external_token_kPublished; ts_external_token_kPublic;
    ts_external_token_kProtected; ts_external_token_kPrivate;
    ts_external_token_kStrict; ts_external_token_kRequired;
    ts_external_token_kOptional];
   [ts_external_token_kOf];
   [ts_external_token_kExcept; ts_external_token_kFinally];
   [ts_external_token_kAbsolute; ts_external_token_kDeprecated;
    ts_external_token_kOf];
   [ts_external_token_kAbsolute];
   [ts_external_token_kElse; ts_external_token_kUntil];
   [ts_external_token_kElse; ts_external_token_kEnd];
   [ts_external_token_kIndex; ts_external_token_kName];
   [ts_external_token_identifier; ts_external_token_kEnd];
   [ts_external_token__literalStringMultiline];
   [ts_external_token_kBegin; ts_external_token_kEnd;
    ts_external_token_kFinalization; ts_external_token_kImplementation;
    ts_external_token_kInitialization; ts_external_token_kInterface];
   [ts_external_token_kAbsolute; ts_external_token_kOf]
  ].

(** States 309 to 333. *)
Definition ts_external_scanner_states_309 : list (list ts_external_token) :=
  [
   [ts_external_token_kPublished; ts_external_token_kPublic;
    ts_external_token_kProtected; ts_external_token_kPrivate;
    ts_external_token_kRequired; ts_external_token_kOptional];
   [ts_external_token_kElse];
   [ts_external_token_kUntil];
   [ts_external_token_kIn];
   [ts_external_token_kEnd];
   [ts_external_token_identifier; ts_external_token_kExcept;
    ts_external_token_kFinally];
   [ts_external_token_kOperator; ts_external_token_kConstructor;
    ts_external_token_kDestructor; ts_external_token_kFunction;
    ts_external_token_kProcedure; ts_external_token_kProperty];
   [ts_external_token_kDeprecated; ts_external_token_kDo];
   [ts_external_token_kOperator; ts_external_token_kConstructor;
    ts_external_token_kDestructor; ts_external_token_kFunction;
    ts_external_token_kProcedure];
   [ts_external_token_kClass; ts_external_token_kConstructor;
    ts_external_token_kDestructor; ts_external_token_kFunction;
    ts_external_token_kProcedure];
   [ts_external_token_identifier; ts_external_token_kGeneric];
   [ts_external_token_identifier; ts_external_token_kUntil];
   [ts_external_token_kOn; ts_external_token_kElse; ts_external_token_kEnd];
   [ts_external_token_kConstructor; ts_external_token_kDestructor;
    ts_external_token_kFunction; ts_external_token_kProcedure];
   [ts_external_token_kOn];
   [ts_external_token_kName];
   [ts_external_token_kCase];
   [ts_external_token_kFunction; ts_external_token_kProcedure];
   [ts_external_token_kOn; ts_external_token_kElse];
   [ts_external_token_kArray; ts_external_token_kRecord];
   [ts_external_token_kDownto; ts_external_token_kTo];
   [ts_external_token_kFor];
   [ts_external_token_kTo];
   [ts_external_token_kObject];
   [ts_external_token_kDo]
  ].

Definition ts_external_scanner_states : list (list ts_external_token) :=
  ts_external_scanner_states_0 ++ ts_external_scanner_states_1 ++
  ts_external_scanner_states_2 ++ ts_external_scanner_states_4 ++
  ts_external_scanner_states_7 ++ ts_external_scanner_states_10 ++
  ts_external_scanner_states_13 ++ ts_external_scanner_states_16 ++
  ts_external_scanner_states_21 ++ ts_external_scanner_states_24 ++
  ts_external_scanner_states_26 ++ ts_external_scanner_states_28 ++
  ts_external_scanner_states_30 ++ ts_external_scanner_states_32 ++
  ts_external_scanner_states_34 ++ ts_external_scanner_states_36 ++
  ts_external_scanner_states_38 ++ ts_external_scanner_states_40 ++
  ts_external_scanner_states_42 ++ ts_external_scanner_states_44 ++
  ts_external_scanner_states_46 ++ ts_external_scanner_states_48 ++
  ts_external_scanner_states_50 ++ ts_external_scanner_states_52 ++
  ts_external_scanner_states_54 ++ ts_external_scanner_states_56 ++
  ts_external_scanner_states_61 ++ ts_external_scanner_states_66 ++
  ts_external_scanner_states_70 ++ ts_external_scanner_states_76 ++
  ts_external_scanner_states_82 ++ ts_external_scanner_states_88 ++
  ts_external_scanner_states_93 ++ ts_external_scanner_states_98 ++
  ts_external_scanner_states_102 ++ ts_external_scanner_states_107 ++
  ts_external_scanner_states_111 ++ ts_external_scanner_states_115 ++
  ts_external_scanner_states_119 ++ ts_external_scanner_states_123 ++
  ts_external_scanner_states_128 ++ ts_external_scanner_states_133 ++
  ts_external_scanner_states_139 ++ ts_external_scanner_states_146 ++
  ts_external_scanner_states_154 ++ ts_external_scanner_states_162 ++
  ts_external_scanner_states_169 ++ ts_external_scanner_states_178 ++
  ts_external_scanner_states_187 ++ ts_external_scanner_states_195 ++
  ts_external_scanner_states_204 ++ ts_external_scanner_states_213 ++
  ts_external_scanner_states_222 ++ ts_external_scanner_states_230 ++
  ts_external_scanner_states_240 ++ ts_external_scanner_states_248 ++
  ts_external_scanner_states_262 ++ ts_external_scanner_states_284 ++
  ts_external_scanner_states_309.
