(* ===== verification/LexModes.v ===== *)
(** * The lex modes of [parser.c]

    [ts_lex_modes] gives each parse state the state in which the internal
    lexer starts and the row of the external-scanner table; an omitted
    [external_lex_state] is 0.  Element [n] of the list is the initializer of
    parse state [n]; the blocks are consecutive. *)

From S2P Require Import Prelude.

Record TSLexMode := MkMode { lex_state : Z; external_lex_state : Z }.

Definition STATE_COUNT : nat := Z.to_nat 16007.

Definition LARGE_STATE_COUNT : nat := 2759.

#[local] Abbreviation M := MkMode (only parsing).

(** Parse states 0 to 149. *)
Definition ts_lex_modes_0 : list TSLexMode :=
  [
   M 0 1; M 144 2; M 2 3; M 2 3; M 2 4; M 2 4; M 2 4; M 2 4; M 2 4; M 2 4;
   M 2 4; M 2 4; M 2 4; M 2 4; M 2 4; M 2 4; M 2 4; M 2 4; M 2 4; M 2 4;
   M 2 4; M 2 4; M 2 4; M 2 4; M 2 4; M 2 4; M 2 4; M 2 4; M 2 4; M 2 4;
   M 2 4; M 2 4; M 2 4; M 2 4; M 2 4; M 2 4; M 2 4; M 2 4; M 2 4; M 2 4;
   M 2 4; M 2 4; M 2 4; M 2 4; M 2 4; M 2 4; M 2 4; M 2 4; M 2 4; M 2 4;
   M 2 4; M 2 4; M 2 4; M 2 4; M 2 4; M 2 4; M 2 4; M 2 4; M 2 4; M 3 5;
   M 3 5; M 3 5; M 3 5; M 3 5; M 3 5; M 3 5; M 3 5; M 3 5; M 3 5; M 3 5;
   M 3 5; M 3 5; M 3 5; M 3 5; M 3 5; M 3 5; M 3 5; M 3 5; M 3 5; M 3 5;
   M 3 5; M 3 5; M 3 5; M 3 5; M 3 5; M 3 5; M 3 5; M 3 5; M 3 5; M 3 5;
   M 3 5; M 3 5; M 3 5; M 3 5; M 3 5; M 3 5; M 3 5; M 3 5; M 3 5; M 3 5;
   M 3 5; M 3 5; M 3 5; M 3 5; M 3 5; M 3 5; M 3 5; M 3 5; M 3 5; M 3 5;
   M 3 5; M 3 5; M 3 5; M 3 5; M 3 5; M 3 5; M 3 5; M 3 5; M 3 5; M 3 5;
   M 3 5; M 3 5; M 3 5; M 3 5; M 3 5; M 3 5; M 3 5; M 3 5; M 3 5; M 3 5;
   M 3 5; M 3 5; M 3 5; M 3 6; M 3 6; M 3 6; M 3 7; M 2 4; M 3 7; M 3 7;
   M 3 7; M 3 7; M 3 7; M 3 7; M 3 7; M 3 7; M 2 4; M 3 7; M 3 7; M 3 7
  ].

(** Parse states 150 to 299. *)
Definition ts_lex_modes_150 : list TSLexMode :=
  [
   M 3 7; M 3 7; M 3 7; M 3 7; M 3 7; M 3 7; M 3 7; M 3 7; M 3 7; M 3 7;
   M 3 7; M 3 7; M 3 7; M 2 4; M 3 7; M 3 7; M 3 7; M 3 7; M 3 7; M 3 7;
   M 3 7; M 3 7; M 3 7; M 3 7; M 3 7; M 3 7; M 3 8; M 2 9; M 2 9; M 2 9;
   M 2 9; M 2 9; M 2 9; M 2 9; M 3 8; M 3 10; M 3 10; M 3 10; M 3 10; M 3 10;
   M 3 10; M 3 10; M 3 10; M 3 10; M 3 10; M 3 10; M 3 10; M 3 10; M 3 10;
   M 3 10; M 3 10; M 3 10; M 3 10; M 3 10; M 3 10; M 3 10; M 3 10; M 3 10;
   M 3 10; M 3 10; M 3 10; M 3 10; M 3 10; M 3 10; M 3 10; M 3 10; M 3 10;
   M 3 10; M 3 10; M 3 8; M 3 10; M 3 10; M 3 10; M 3 10; M 3 10; M 2 9;
   M 3 10; M 3 10; M 3 10; M 3 10; M 3 10; M 3 10; M 2 9; M 3 10; M 3 10;
   M 3 10; M 3 10; M 3 10; M 3 10; M 2 9; M 3 10; M 3 10; M 3 10; M 3 10;
   M 2 9; M 2 9; M 2 9; M 3 10; M 2 9; M 3 10; M 3 10; M 3 10; M 3 10; M 2 9;
   M 2 9; M 3 10; M 3 10; M 3 10; M 3 10; M 3 10; M 3 10; M 3 10; M 3 10;
   M 3 10; M 3 10; M 3 10; M 3 10; M 3 10; M 3 10; M 3 10; M 2 9; M 2 9;
   M 3 10; M 2 9; M 3 10; M 3 10; M 3 10; M 3 10; M 2 9; M 3 10; M 3 10;
   M 3 10; M 3 10; M 3 10; M 2 9; M 2 9; M 3 10; M 2 9; M 3 10; M 3 10;
   M 3 10; M 3 10; M 2 9; M 2 9; M 3 10; M 2 9; M 3 10; M 3 10; M 3 10; M 3 10
  ].

(** Parse states 300 to 449. *)
Definition ts_lex_modes_300 : list TSLexMode :=
  [
   M 2 9; M 3 10; M 3 10; M 3 10; M 3 10; M 3 10; M 3 10; M 3 10; M 3 10;
   M 3 10; M 3 10; M 3 10; M 3 10; M 3 10; M 3 10; M 3 10; M 3 10; M 3 10;
   M 3 10; M 3 10; M 3 10; M 3 10; M 3 10; M 3 10; M 2 9; M 3 10; M 3 10;
   M 3 10; M 3 10; M 3 10; M 3 10; M 3 10; M 3 10; M 3 10; M 3 10; M 3 10;
   M 3 10; M 2 9; M 3 10; M 3 10; M 3 10; M 3 10; M 2 9; M 3 10; M 2 9;
   M 3 10; M 3 10; M 3 10; M 3 10; M 2 9; M 3 10; M 3 10; M 3 10; M 3 10;
   M 3 10; M 3 10; M 3 10; M 3 10; M 3 10; M 3 10; M 3 8; M 3 10; M 3 10;
   M 3 10; M 3 10; M 3 10; M 3 8; M 2 9; M 2 9; M 3 10; M 2 9; M 3 10; M 3 10;
   M 3 10; M 3 10; M 3 8; M 2 9; M 2 9; M 2 9; M 3 10; M 2 9; M 3 10; M 3 10;
   M 3 10; M 3 10; M 3 8; M 2 9; M 3 10; M 3 10; M 3 10; M 3 10; M 3 10;
   M 3 8; M 3 10; M 3 10; M 3 10; M 3 10; M 3 10; M 3 8; M 3 10; M 3 10;
   M 3 10; M 3 10; M 3 10; M 3 8; M 3 10; M 3 10; M 3 10; M 3 10; M 3 10;
   M 3 8; M 3 8; M 3 8; M 3 8; M 2 9; M 3 8; M 2 9; M 3 8; M 2 9; M 3 8;
   M 3 8; M 3 8; M 3 8; M 3 8; M 3 8; M 3 8; M 3 8; M 3 8; M 3 8; M 3 8;
   M 3 8; M 3 8; M 3 8; M 3 8; M 2 9; M 3 8; M 2 9; M 3 8; M 2 9; M 3 8;
   M 2 9; M 3 8; M 2 9; M 3 8; M 2 9; M 3 8; M 3 10; M 3 10; M 3 10; M 3 10
  ].

(** Parse states 450 to 599. *)
Definition ts_lex_modes_450 : list TSLexMode :=
  [
   M 3 10; M 3 10; M 3 10; M 3 10; M 3 10; M 3 10; M 3 10; M 3 10; M 3 10;
   M 3 10; M 3 10; M 3 10; M 3 10; M 3 10; M 3 10; M 3 10; M 3 10; M 3 10;
   M 6 11; M 3 10; M 3 10; M 3 10; M 3 10; M 3 10; M 3 10; M 3 10; M 3 10;
   M 3 10; M 3 10; M 3 10; M 6 11; M 6 11; M 6 11; M 3 10; M 6 11; M 3 10;
   M 6 11; M 3 10; M 6 11; M 3 10; M 3 10; M 6 11; M 6 11; M 6 11; M 6 11;
   M 3 10; M 3 10; M 6 11; M 3 10; M 6 11; M 3 10; M 3 10; M 6 11; M 6 11;
   M 3 10; M 3 10; M 3 10; M 3 10; M 3 10; M 3 10; M 3 10; M 3 10; M 3 10;
   M 3 10; M 3 10; M 3 10; M 3 10; M 2 4; M 3 10; M 3 10; M 3 10; M 3 10;
   M 3 10; M 3 10; M 3 10; M 3 10; M 3 10; M 3 10; M 3 10; M 3 10; M 6 11;
   M 3 10; M 3 10; M 3 10; M 3 10; M 3 10; M 3 10; M 3 10; M 3 10; M 2 12;
   M 3 10; M 3 10; M 3 10; M 3 10; M 3 10; M 3 10; M 3 10; M 3 10; M 3 10;
   M 3 10; M 3 10; M 3 10; M 3 10; M 3 10; M 6 11; M 3 10; M 3 10; M 3 10;
   M 3 10; M 3 10; M 3 10; M 3 10; M 3 10; M 3 10; M 3 10; M 3 10; M 3 10;
   M 3 10; M 3 10; M 3 10; M 3 10; M 3 10; M 3 10; M 3 10; M 3 10; M 3 10;
   M 3 10; M 2 12; M 6 11; M 3 10; M 3 10; M 3 10; M 3 10; M 3 10; M 3 10;
   M 3 10; M 3 10; M 3 10; M 3 10; M 3 10; M 3 10; M 3 10; M 3 10; M 3 10;
   M 3 10; M 3 10; M 3 10; M 3 10; M 3 10; M 3 10
  ].

(** Parse states 600 to 749. *)
Definition ts_lex_modes_600 : list TSLexMode :=
  [
   M 3 10; M 3 10; M 3 10; M 3 10; M 3 10; M 3 10; M 3 10; M 3 10; M 3 10;
   M 3 10; M 3 10; M 3 10; M 3 10; M 3 10; M 2 4; M 3 10; M 3 10; M 3 10;
   M 3 10; M 3 10; M 3 10; M 3 10; M 3 10; M 3 10; M 3 10; M 3 10; M 3 10;
   M 2 4; M 3 10; M 3 10; M 3 10; M 3 10; M 3 10; M 3 10; M 3 10; M 2 4;
   M 3 10; M 3 10; M 3 10; M 3 10; M 3 10; M 3 10; M 3 10; M 3 10; M 3 10;
   M 3 10; M 3 10; M 3 10; M 3 10; M 3 10; M 3 10; M 2 4; M 3 10; M 3 10;
   M 3 10; M 3 10; M 3 10; M 3 10; M 2 4; M 3 10; M 3 10; M 3 10; M 3 10;
   M 3 10; M 3 10; M 3 10; M 3 10; M 3 10; M 3 10; M 3 10; M 3 10; M 3 10;
   M 3 10; M 3 10; M 3 10; M 3 10; M 2 12; M 2 12; M 6 13; M 2 14; M 2 14;
   M 2 14; M 2 14; M 2 12; M 2 14; M 2 12; M 2 12; M 2 14; M 2 12; M 6 13;
   M 2 12; M 2 12; M 6 13; M 6 13; M 2 14; M 2 14; M 2 14; M 2 12; M 6 13;
   M 2 14; M 2 12; M 2 14; M 2 14; M 6 11; M 2 14; M 2 14; M 2 14; M 2 12;
   M 2 14; M 6 11; M 2 14; M 2 14; M 2 12; M 2 14; M 2 12; M 2 12; M 2 12;
   M 2 14; M 2 12; M 2 4; M 2 14; M 2 14; M 2 14; M 2 14; M 2 12; M 2 14;
   M 2 12; M 2 12; M 2 14; M 2 14; M 2 12; M 2 12; M 2 12; M 2 14; M 2 14;
   M 2 12; M 2 14; M 2 14; M 2 14; M 2 4; M 2 14; M 2 12; M 2 4; M 2 12;
   M 2 12; M 2 14; M 2 12; M 2 12; M 2 14; M 2 12
  ].

(** Parse states 750 to 899. *)
Definition ts_lex_modes_750 : list TSLexMode :=
  [
   M 2 14; M 2 14; M 2 14; M 2 12; M 2 14; M 2 14; M 2 14; M 2 14; M 6 11;
   M 2 14; M 2 14; M 2 14; M 2 14; M 2 14; M 2 12; M 2 14; M 2 14; M 2 14;
   M 2 14; M 2 12; M 2 14; M 2 4; M 2 14; M 2 12; M 2 14; M 2 14; M 2 14;
   M 2 14; M 2 14; M 2 14; M 2 14; M 2 12; M 2 14; M 2 14; M 2 14; M 6 11;
   M 2 14; M 2 4; M 2 14; M 2 14; M 2 14; M 2 14; M 2 14; M 2 4; M 2 14;
   M 2 14; M 2 14; M 2 14; M 2 14; M 2 3; M 2 14; M 2 14; M 2 14; M 2 14;
   M 2 14; M 2 14; M 2 14; M 2 14; M 2 14; M 2 14; M 2 14; M 2 14; M 2 14;
   M 2 14; M 2 14; M 2 12; M 2 14; M 2 12; M 2 14; M 2 12; M 2 14; M 2 12;
   M 2 14; M 2 12; M 2 14; M 2 12; M 2 12; M 2 12; M 2 14; M 2 12; M 2 14;
   M 2 12; M 2 14; M 2 12; M 2 12; M 2 14; M 2 12; M 2 14; M 2 12; M 6 13;
   M 2 12; M 2 14; M 2 12; M 2 14; M 2 14; M 2 14; M 2 14; M 2 14; M 2 14;
   M 2 14; M 2 14; M 2 14; M 2 14; M 2 14; M 2 14; M 6 13; M 2 14; M 2 12;
   M 6 13; M 6 13; M 3 15; M 3 15; M 3 15; M 3 15; M 2 14; M 6 16; M 6 16;
   M 6 16; M 6 16; M 6 16; M 6 16; M 6 16; M 2 14; M 2 14; M 2 14; M 2 14;
   M 2 14; M 2 14; M 2 14; M 2 14; M 2 14; M 2 14; M 2 14; M 2 14; M 2 14;
   M 2 14; M 2 14; M 2 14; M 2 14; M 6 17; M 6 16; M 2 14; M 2 14; M 6 16;
   M 2 14; M 2 14; M 2 14; M 2 14; M 2 14; M 2 14
  ].

(** Parse states 900 to 1049. *)
Definition ts_lex_modes_900 : list TSLexMode :=
  [
   M 2 14; M 6 16; M 2 14; M 2 14; M 2 14; M 2 14; M 2 14; M 2 14; M 2 14;
   M 2 14; M 2 14; M 2 14; M 2 14; M 2 14; M 2 14; M 2 14; M 2 14; M 2 14;
   M 2 14; M 6 16; M 2 14; M 2 14; M 2 14; M 2 14; M 2 14; M 2 14; M 2 14;
   M 2 14; M 2 14; M 2 14; M 2 14; M 2 14; M 2 14; M 2 14; M 2 14; M 2 14;
   M 2 14; M 2 14; M 2 14; M 6 17; M 6 17; M 6 17; M 6 17; M 6 17; M 6 17;
   M 6 17; M 6 17; M 2 14; M 6 16; M 6 16; M 6 16; M 6 16; M 6 16; M 6 16;
   M 6 16; M 2 14; M 2 14; M 2 14; M 2 14; M 2 14; M 2 14; M 2 14; M 2 14;
   M 2 14; M 6 18; M 6 18; M 6 17; M 6 18; M 6 18; M 6 18; M 6 19; M 2 9;
   M 6 19; M 6 19; M 6 16; M 6 19; M 2 9; M 6 19; M 6 19; M 6 19; M 2 9;
   M 2 9; M 2 9; M 6 18; M 2 9; M 2 9; M 6 18; M 2 9; M 6 20; M 6 20; M 6 20;
   M 6 20; M 6 16; M 6 20; M 6 20; M 6 20; M 2 9; M 6 16; M 6 19; M 6 19;
   M 6 19; M 6 19; M 6 19; M 6 19; M 6 19; M 2 9; M 6 18; M 6 18; M 6 18;
   M 2 21; M 6 16; M 6 19; M 6 18; M 6 18; M 6 18; M 6 18; M 6 18; M 6 18;
   M 6 18; M 6 18; M 2 9; M 6 18; M 6 18; M 6 18; M 6 19; M 6 18; M 6 18;
   M 6 18; M 6 18; M 6 17; M 6 18; M 6 19; M 2 9; M 6 18; M 6 18; M 6 19;
   M 6 22; M 6 22; M 6 22; M 6 22; M 6 22; M 6 23; M 6 22; M 6 22; M 6 22;
   M 6 22; M 6 22; M 6 22; M 6 22; M 6 22
  ].

(** Parse states 1050 to 1199. *)
Definition ts_lex_modes_1050 : list TSLexMode :=
  [
   M 6 24; M 6 22; M 6 22; M 6 22; M 6 22; M 6 22; M 6 22; M 6 22; M 6 22;
   M 6 22; M 6 22; M 6 22; M 6 22; M 6 22; M 6 22; M 6 22; M 6 24; M 6 22;
   M 6 22; M 6 22; M 6 22; M 6 22; M 6 22; M 6 22; M 6 22; M 6 22; M 6 22;
   M 6 22; M 6 22; M 6 22; M 6 22; M 6 22; M 6 22; M 6 22; M 6 22; M 2 12;
   M 6 22; M 6 22; M 6 22; M 6 22; M 6 22; M 6 22; M 6 22; M 6 22; M 6 19;
   M 6 22; M 6 22; M 6 22; M 6 22; M 6 22; M 6 19; M 6 24; M 6 24; M 6 24;
   M 6 22; M 6 22; M 6 22; M 6 22; M 6 22; M 6 19; M 6 22; M 6 22; M 6 22;
   M 6 22; M 6 19; M 6 22; M 6 22; M 6 22; M 6 22; M 6 22; M 6 22; M 6 22;
   M 6 22; M 6 22; M 6 22; M 6 22; M 6 22; M 6 22; M 6 22; M 6 22; M 2 12;
   M 6 23; M 6 22; M 6 18; M 2 12; M 6 22; M 6 23; M 6 22; M 6 22; M 2 12;
   M 2 12; M 2 12; M 6 22; M 6 22; M 6 22; M 6 22; M 6 20; M 6 22; M 6 22;
   M 6 22; M 6 22; M 6 20; M 6 22; M 2 12; M 6 22; M 6 22; M 6 22; M 2 12;
   M 6 22; M 6 22; M 2 12; M 6 22; M 6 22; M 6 22; M 2 12; M 2 12; M 6 22;
   M 6 22; M 6 22; M 6 22; M 6 18; M 6 22; M 6 22; M 6 22; M 6 22; M 6 18;
   M 6 22; M 6 22; M 6 22; M 6 22; M 6 22; M 6 22; M 6 22; M 6 22; M 6 22;
   M 6 23; M 6 18; M 6 22; M 6 22; M 6 22; M 6 22; M 6 18; M 6 23; M 6 23;
   M 6 23; M 6 22; M 6 22; M 6 22; M 6 24; M 6 24
  ].

(** Parse states 1200 to 1349. *)
Definition ts_lex_modes_1200 : list TSLexMode :=
  [
   M 6 18; M 6 22; M 6 22; M 6 22; M 2 12; M 6 22; M 6 22; M 6 22; M 6 22;
   M 2 25; M 2 25; M 6 22; M 6 22; M 6 23; M 2 14; M 2 14; M 6 22; M 2 25;
   M 2 14; M 6 22; M 6 22; M 2 14; M 6 22; M 6 22; M 2 14; M 2 14; M 2 14;
   M 2 25; M 6 22; M 2 25; M 6 22; M 2 14; M 2 25; M 6 22; M 2 14; M 2 14;
   M 2 14; M 2 14; M 6 22; M 6 22; M 2 25; M 6 22; M 6 22; M 6 22; M 2 14;
   M 2 25; M 6 23; M 2 25; M 2 25; M 2 25; M 6 22; M 2 25; M 2 25; M 6 22;
   M 2 14; M 2 14; M 2 25; M 6 22; M 2 14; M 2 14; M 6 24; M 2 14; M 6 24;
   M 6 22; M 2 25; M 2 14; M 2 14; M 6 22; M 2 25; M 2 25; M 2 25; M 6 22;
   M 6 22; M 2 25; M 6 22; M 6 22; M 2 14; M 2 25; M 2 25; M 6 22; M 6 22;
   M 6 22; M 6 22; M 6 22; M 2 25; M 2 25; M 2 25; M 2 14; M 2 25; M 2 25;
   M 2 25; M 2 25; M 2 25; M 2 25; M 2 25; M 2 14; M 2 25; M 2 25; M 2 25;
   M 2 25; M 2 25; M 2 25; M 2 25; M 2 25; M 2 25; M 2 25; M 6 22; M 2 4;
   M 2 4; M 2 4; M 2 4; M 2 4; M 2 4; M 2 4; M 2 4; M 2 4; M 2 4; M 2 4;
   M 2 4; M 2 4; M 2 4; M 2 4; M 2 4; M 2 4; M 2 4; M 2 4; M 2 4; M 2 4;
   M 2 4; M 2 4; M 2 4; M 2 4; M 2 4; M 2 4; M 2 4; M 2 4; M 2 4; M 2 4;
   M 2 4; M 2 4; M 2 4; M 2 4; M 2 4; M 2 4; M 2 4; M 2 4; M 2 4; M 2 4;
   M 2 4; M 2 4
  ].

(** Parse states 1350 to 1499. *)
Definition ts_lex_modes_1350 : list TSLexMode :=
  [
   M 2 4; M 2 4; M 2 4; M 2 4; M 2 4; M 2 4; M 2 4; M 2 4; M 2 4; M 2 4;
   M 2 4; M 2 4; M 2 4; M 2 4; M 2 4; M 2 4; M 2 4; M 2 4; M 2 4; M 2 4;
   M 2 4; M 2 4; M 2 4; M 2 4; M 2 4; M 2 4; M 2 4; M 2 4; M 2 4; M 2 4;
   M 1 15; M 1 15; M 1 15; M 1 15; M 1 15; M 1 15; M 1 15; M 1 15; M 1 15;
   M 1 15; M 1 15; M 1 15; M 1 15; M 1 15; M 1 15; M 3 15; M 15 26; M 6 27;
   M 6 27; M 6 27; M 6 27; M 6 27; M 6 27; M 6 27; M 6 27; M 6 27; M 6 27;
   M 6 27; M 6 27; M 6 27; M 6 27; M 6 27; M 6 27; M 6 27; M 6 27; M 6 27;
   M 6 27; M 6 27; M 6 27; M 6 27; M 6 27; M 6 27; M 6 27; M 6 27; M 6 27;
   M 6 27; M 6 27; M 6 27; M 6 27; M 6 27; M 6 27; M 6 27; M 6 27; M 6 27;
   M 6 27; M 6 27; M 6 27; M 6 27; M 6 27; M 6 27; M 6 27; M 6 27; M 6 27;
   M 6 27; M 6 27; M 6 27; M 6 27; M 6 27; M 6 27; M 6 27; M 6 27; M 6 27;
   M 6 27; M 6 27; M 6 27; M 6 27; M 6 27; M 6 27; M 6 27; M 6 27; M 6 27;
   M 6 27; M 6 27; M 6 27; M 6 27; M 6 27; M 6 27; M 6 27; M 6 27; M 6 27;
   M 6 27; M 6 27; M 6 27; M 6 27; M 6 27; M 6 27; M 144 28; M 144 29;
   M 144 28; M 144 29; M 144 28; M 144 30; M 144 30; M 144 30; M 144 28;
   M 144 28; M 144 28; M 144 30; M 144 28; M 144 28; M 144 28; M 144 28;
   M 144 30; M 144 28; M 144 28; M 144 28; M 144 28; M 144 28; M 144 28;
   M 144 28
  ].

(** Parse states 1500 to 1649. *)
Definition ts_lex_modes_1500 : list TSLexMode :=
  [
   M 144 28; M 144 28; M 144 28; M 144 28; M 144 29; M 144 28; M 144 28;
   M 144 28; M 144 28; M 144 28; M 144 28; M 144 29; M 144 28; M 144 28;
   M 144 28; M 144 28; M 144 28; M 144 28; M 144 28; M 144 28; M 144 28;
   M 144 28; M 144 28; M 144 28; M 144 28; M 144 28; M 144 28; M 144 28;
   M 144 28; M 144 28; M 144 28; M 144 28; M 144 28; M 144 31; M 144 31;
   M 144 31; M 144 31; M 144 31; M 144 29; M 144 28; M 144 32; M 144 33;
   M 144 33; M 144 33; M 144 33; M 144 33; M 144 33; M 144 33; M 144 33;
   M 144 33; M 144 33; M 144 33; M 144 33; M 144 32; M 144 32; M 144 33;
   M 144 33; M 144 33; M 144 33; M 144 33; M 144 33; M 144 34; M 144 32;
   M 144 33; M 144 33; M 144 33; M 144 33; M 144 33; M 144 33; M 144 33;
   M 144 33; M 144 33; M 144 33; M 144 33; M 144 33; M 144 33; M 144 33;
   M 144 32; M 144 32; M 144 32; M 144 34; M 144 33; M 144 33; M 144 33;
   M 144 33; M 144 33; M 144 33; M 144 33; M 144 33; M 144 33; M 144 33;
   M 144 33; M 144 32; M 144 32; M 144 34; M 144 33; M 144 32; M 144 34;
   M 144 32; M 144 33; M 144 34; M 144 33; M 144 33; M 144 34; M 144 34;
   M 144 34; M 144 34; M 144 34; M 144 34; M 144 34; M 144 34; M 144 34;
   M 144 34; M 144 34; M 144 34; M 144 32; M 144 34; M 144 32; M 144 34;
   M 144 34; M 144 33; M 144 34; M 144 34; M 144 34; M 144 34; M 144 34;
   M 144 34; M 144 34; M 144 34; M 144 34; M 144 32; M 144 34; M 144 34;
   M 144 34; M 144 34; M 144 32; M 144 32; M 144 32; M 144 32; M 144 32;
   M 144 32; M 144 32; M 144 34; M 144 34; M 144 34; M 144 34; M 144 34;
   M 144 32; M 144 34; M 144 32
  ].

(** Parse states 1650 to 1799. *)
Definition ts_lex_modes_1650 : list TSLexMode :=
  [
   M 144 32; M 144 34; M 144 34; M 144 34; M 144 34; M 144 34; M 144 32;
   M 144 34; M 144 32; M 144 34; M 144 32; M 144 32; M 144 32; M 144 32;
   M 144 32; M 144 32; M 144 32; M 144 32; M 144 32; M 144 32; M 144 32;
   M 144 32; M 144 34; M 144 32; M 144 32; M 144 32; M 144 32; M 144 34;
   M 144 32; M 144 32; M 144 32; M 144 32; M 144 32; M 144 33; M 144 32;
   M 144 32; M 144 34; M 144 35; M 144 36; M 144 36; M 144 36; M 144 36;
   M 144 36; M 144 36; M 144 36; M 144 36; M 144 36; M 144 36; M 144 36;
   M 144 36; M 144 36; M 144 36; M 144 36; M 144 36; M 144 36; M 144 36;
   M 144 36; M 144 36; M 144 36; M 144 36; M 144 36; M 144 36; M 144 36;
   M 144 36; M 144 36; M 144 36; M 144 35; M 144 35; M 144 35; M 144 35;
   M 144 35; M 144 35; M 144 35; M 144 35; M 144 35; M 144 35; M 144 35;
   M 144 35; M 144 35; M 144 35; M 144 35; M 144 35; M 144 35; M 144 35;
   M 144 35; M 144 35; M 144 35; M 144 35; M 144 35; M 144 35; M 144 35;
   M 144 35; M 144 35; M 144 35; M 144 35; M 144 35; M 144 35; M 144 35;
   M 144 35; M 144 35; M 144 35; M 144 35; M 144 35; M 144 35; M 144 35;
   M 144 35; M 144 35; M 144 35; M 144 35; M 144 35; M 144 35; M 144 35;
   M 144 35; M 144 35; M 144 36; M 144 36; M 144 36; M 144 36; M 144 36;
   M 144 36; M 144 36; M 144 36; M 144 36; M 144 36; M 144 36; M 144 36;
   M 144 36; M 144 36; M 144 36; M 144 36; M 144 36; M 144 36; M 144 36;
   M 144 36; M 144 36; M 144 36; M 144 36; M 144 36; M 144 36; M 144 36;
   M 144 36; M 144 36; M 144 36; M 144 36; M 144 36; M 144 36; M 144 36;
   M 144 36; M 144 36; M 144 36
  ].

(** Parse states 1800 to 1949. *)
Definition ts_lex_modes_1800 : list TSLexMode :=
  [
   M 144 36; M 144 36; M 144 36; M 144 36; M 144 36; M 144 36; M 144 36;
   M 144 36; M 144 36; M 144 36; M 144 36; M 144 36; M 144 36; M 144 36;
   M 144 36; M 144 36; M 144 36; M 144 36; M 144 36; M 144 36; M 144 36;
   M 144 36; M 144 36; M 144 36; M 144 36; M 144 36; M 144 36; M 144 36;
   M 144 35; M 144 35; M 144 35; M 144 35; M 144 35; M 144 35; M 144 35;
   M 144 35; M 144 35; M 144 35; M 144 35; M 144 35; M 144 35; M 144 35;
   M 144 35; M 144 35; M 144 35; M 144 35; M 144 35; M 144 35; M 144 35;
   M 144 35; M 144 35; M 144 35; M 144 35; M 144 35; M 144 35; M 144 35;
   M 144 35; M 144 35; M 144 35; M 144 35; M 144 35; M 144 35; M 144 35;
   M 144 35; M 144 35; M 144 35; M 144 35; M 144 35; M 144 35; M 144 35;
   M 144 35; M 144 35; M 144 35; M 144 35; M 144 35; M 144 35; M 144 35;
   M 144 35; M 144 35; M 144 35; M 144 35; M 144 35; M 144 35; M 144 35;
   M 144 35; M 144 35; M 144 35; M 144 35; M 144 35; M 144 35; M 144 35;
   M 144 35; M 144 36; M 144 36; M 144 36; M 144 36; M 144 36; M 144 36;
   M 144 36; M 144 36; M 144 36; M 144 36; M 144 36; M 144 36; M 144 36;
   M 144 36; M 144 36; M 144 36; M 144 36; M 144 36; M 144 36; M 144 36;
   M 144 36; M 144 37; M 144 37; M 144 37; M 144 37; M 144 37; M 144 37;
   M 144 37; M 144 37; M 144 37; M 144 37; M 144 37; M 144 37; M 144 37;
   M 144 37; M 144 37; M 144 37; M 144 37; M 144 37; M 144 38; M 144 38;
   M 144 38; M 144 38; M 144 38; M 144 38; M 144 39; M 144 38; M 144 39;
   M 144 39; M 144 38; M 144 38; M 144 38; M 144 38; M 144 38; M 144 38;
   M 144 38; M 144 38; M 144 38
  ].

(** Parse states 1950 to 2099. *)
Definition ts_lex_modes_1950 : list TSLexMode :=
  [
   M 144 39; M 144 39; M 144 39; M 144 39; M 144 39; M 144 37; M 144 38;
   M 144 37; M 144 39; M 144 39; M 144 39; M 144 39; M 144 39; M 144 39;
   M 144 37; M 144 39; M 144 39; M 144 39; M 144 39; M 144 39; M 144 38;
   M 144 39; M 144 38; M 144 38; M 144 38; M 144 39; M 144 40; M 144 35;
   M 144 35; M 144 35; M 144 35; M 144 41; M 144 40; M 144 41; M 144 41;
   M 144 40; M 144 40; M 144 41; M 144 40; M 144 41; M 144 40; M 144 40;
   M 144 40; M 144 42; M 144 36; M 144 36; M 144 40; M 144 36; M 144 36;
   M 144 36; M 144 36; M 144 36; M 144 40; M 144 40; M 144 40; M 144 40;
   M 144 40; M 144 40; M 144 40; M 144 36; M 144 36; M 144 43; M 144 43;
   M 144 40; M 144 36; M 144 36; M 144 43; M 144 36; M 144 36; M 144 36;
   M 144 36; M 144 36; M 144 36; M 144 36; M 144 36; M 144 36; M 144 36;
   M 144 42; M 11 44; M 144 40; M 144 40; M 144 40; M 144 43; M 144 43;
   M 11 44; M 144 35; M 144 42; M 144 35; M 144 35; M 144 35; M 144 35;
   M 144 35; M 144 40; M 144 40; M 144 45; M 144 35; M 144 40; M 144 40;
   M 144 45; M 144 45; M 144 36; M 144 40; M 144 40; M 144 35; M 144 45;
   M 144 40; M 144 35; M 144 35; M 144 35; M 144 35; M 144 40; M 144 40;
   M 144 40; M 144 40; M 144 35; M 144 35; M 144 35; M 144 35; M 144 36;
   M 144 35; M 144 35; M 144 35; M 144 42; M 144 35; M 144 35; M 144 42;
   M 144 35; M 144 35; M 144 35; M 144 40; M 144 45; M 144 40; M 144 40;
   M 144 40; M 144 35; M 144 36; M 144 40; M 144 36; M 144 36; M 144 35;
   M 144 36; M 144 36; M 144 35; M 144 35; M 144 36; M 144 40; M 144 40;
   M 144 40; M 144 40; M 144 40
  ].

(** Parse states 2100 to 2249. *)
Definition ts_lex_modes_2100 : list TSLexMode :=
  [
   M 144 35; M 144 35; M 144 35; M 144 35; M 144 36; M 144 36; M 144 36;
   M 144 36; M 144 40; M 144 35; M 144 40; M 144 40; M 144 36; M 144 35;
   M 144 40; M 144 40; M 144 40; M 144 35; M 144 35; M 144 35; M 144 36;
   M 144 36; M 144 36; M 144 36; M 144 36; M 144 35; M 144 36; M 144 35;
   M 144 36; M 144 35; M 144 35; M 144 36; M 144 35; M 144 36; M 144 36;
   M 144 36; M 144 35; M 144 35; M 144 40; M 144 35; M 144 35; M 144 35;
   M 144 40; M 144 35; M 144 36; M 144 36; M 144 36; M 144 36; M 144 35;
   M 144 46; M 144 46; M 144 46; M 144 46; M 144 46; M 144 46; M 144 46;
   M 144 46; M 144 46; M 144 46; M 144 46; M 144 46; M 144 47; M 144 47;
   M 144 47; M 144 34; M 144 47; M 144 47; M 144 34; M 144 34; M 144 34;
   M 144 34; M 144 32; M 144 28; M 144 46; M 144 46; M 144 46; M 144 46;
   M 144 46; M 144 46; M 144 46; M 144 46; M 144 46; M 144 46; M 144 46;
   M 144 46; M 144 46; M 144 46; M 144 28; M 144 34; M 144 34; M 144 33;
   M 144 48; M 144 46; M 144 46; M 144 46; M 144 46; M 144 46; M 144 46;
   M 144 46; M 144 46; M 144 47; M 144 46; M 144 46; M 144 47; M 144 47;
   M 144 47; M 144 47; M 144 47; M 144 47; M 144 47; M 144 33; M 144 33;
   M 144 33; M 144 28; M 144 28; M 144 48; M 144 48; M 144 33; M 144 47;
   M 144 47; M 144 47; M 144 48; M 144 48; M 144 48; M 144 48; M 144 48;
   M 144 48; M 144 48; M 144 48; M 144 47; M 144 28; M 144 47; M 144 47;
   M 144 47; M 144 28; M 144 28; M 144 47; M 144 47; M 144 47; M 144 48;
   M 144 48; M 144 33; M 144 48; M 144 48; M 144 34; M 144 33; M 144 34;
   M 144 28; M 144 47; M 144 47
  ].

(** Parse states 2250 to 2399. *)
Definition ts_lex_modes_2250 : list TSLexMode :=
  [
   M 144 47; M 144 32; M 144 47; M 144 47; M 144 47; M 144 48; M 144 48;
   M 144 48; M 144 48; M 144 28; M 144 28; M 144 48; M 144 48; M 144 48;
   M 144 47; M 144 33; M 144 48; M 144 47; M 144 47; M 144 47; M 144 47;
   M 144 47; M 144 47; M 144 47; M 144 47; M 144 48; M 144 48; M 144 33;
   M 144 33; M 144 48; M 144 46; M 144 46; M 144 34; M 144 28; M 144 28;
   M 144 48; M 144 48; M 144 48; M 144 48; M 144 48; M 144 48; M 144 48;
   M 144 48; M 144 48; M 144 48; M 144 48; M 144 33; M 144 32; M 144 32;
   M 144 32; M 144 48; M 144 48; M 144 32; M 144 46; M 144 46; M 144 46;
   M 144 46; M 144 46; M 144 46; M 144 46; M 144 46; M 144 48; M 144 48;
   M 144 48; M 144 32; M 144 34; M 144 47; M 144 47; M 144 47; M 144 32;
   M 144 47; M 144 48; M 144 32; M 144 47; M 144 47; M 144 47; M 144 48;
   M 144 48; M 144 48; M 144 47; M 144 47; M 144 32; M 144 48; M 144 48;
   M 144 48; M 144 47; M 144 46; M 144 32; M 144 46; M 144 46; M 144 47;
   M 144 49; M 144 49; M 144 49; M 144 49; M 144 49; M 144 49; M 144 49;
   M 144 49; M 144 49; M 144 49; M 144 49; M 144 49; M 144 49; M 144 49;
   M 144 49; M 144 49; M 144 49; M 144 49; M 144 49; M 144 49; M 144 49;
   M 144 49; M 144 49; M 144 49; M 144 49; M 144 49; M 144 49; M 144 49;
   M 144 49; M 144 49; M 144 49; M 144 49; M 144 49; M 144 49; M 144 49;
   M 144 49; M 144 49; M 144 49; M 144 49; M 144 49; M 144 49; M 144 49;
   M 144 49; M 144 49; M 144 49; M 144 49; M 144 49; M 144 49; M 144 49;
   M 144 49; M 144 49; M 144 49; M 144 49; M 144 49; M 144 49; M 144 49;
   M 144 49; M 144 49; M 144 49
  ].

(** Parse states 2400 to 2549. *)
Definition ts_lex_modes_2400 : list TSLexMode :=
  [
   M 144 49; M 144 49; M 144 49; M 144 49; M 144 49; M 144 49; M 144 49;
   M 144 49; M 144 49; M 144 49; M 144 49; M 144 49; M 144 49; M 144 49;
   M 144 49; M 144 49; M 144 49; M 144 49; M 144 39; M 144 49; M 144 49;
   M 144 49; M 144 49; M 144 49; M 144 49; M 144 49; M 144 49; M 144 49;
   M 144 49; M 144 49; M 144 49; M 144 38; M 144 49; M 144 49; M 144 37;
   M 144 49; M 144 49; M 144 49; M 144 49; M 144 39; M 144 39; M 144 49;
   M 144 49; M 144 39; M 144 39; M 144 39; M 144 49; M 144 49; M 144 49;
   M 144 49; M 144 49; M 144 49; M 144 49; M 144 49; M 144 38; M 144 38;
   M 144 38; M 144 38; M 144 38; M 144 49; M 144 49; M 144 37; M 144 49;
   M 144 37; M 144 49; M 144 37; M 144 49; M 144 49; M 144 49; M 144 37;
   M 144 37; M 144 49; M 144 50; M 144 50; M 144 35; M 144 35; M 144 45;
   M 144 50; M 144 50; M 144 50; M 144 50; M 144 35; M 144 50; M 144 35;
   M 144 35; M 144 35; M 144 51; M 144 51; M 144 50; M 144 50; M 144 50;
   M 144 51; M 144 35; M 144 50; M 144 45; M 144 51; M 144 36; M 144 45;
   M 144 50; M 144 50; M 144 45; M 144 35; M 144 52; M 144 35; M 144 35;
   M 144 35; M 144 45; M 144 51; M 144 45; M 144 45; M 144 51; M 144 35;
   M 144 52; M 144 35; M 144 51; M 144 52; M 144 52; M 144 50; M 144 35;
   M 144 52; M 144 51; M 144 50; M 144 35; M 144 35; M 144 35; M 144 36;
   M 144 36; M 144 52; M 144 52; M 144 52; M 144 52; M 144 52; M 144 51;
   M 144 51; M 144 52; M 144 52; M 144 50; M 144 35; M 144 51; M 144 36;
   M 144 50; M 144 36; M 144 50; M 144 52; M 144 52; M 144 52; M 144 36;
   M 144 45; M 144 36; M 144 36
  ].

(** Parse states 2550 to 2699. *)
Definition ts_lex_modes_2550 : list TSLexMode :=
  [
   M 144 52; M 144 51; M 144 51; M 144 45; M 144 35; M 144 52; M 144 52;
   M 144 52; M 144 31; M 144 35; M 144 45; M 144 35; M 144 36; M 144 31;
   M 144 35; M 144 52; M 144 31; M 144 51; M 144 51; M 144 36; M 144 51;
   M 144 51; M 144 31; M 144 45; M 144 36; M 144 51; M 144 51; M 144 51;
   M 144 51; M 144 50; M 144 30; M 144 29; M 144 36; M 4 53; M 144 35; M 4 53;
   M 144 30; M 144 30; M 144 30; M 144 29; M 144 36; M 144 36; M 144 50;
   M 144 36; M 144 36; M 144 50; M 144 29; M 144 29; M 144 36; M 144 36;
   M 144 52; M 144 54; M 144 55; M 144 55; M 144 54; M 144 54; M 144 54;
   M 144 49; M 144 49; M 144 55; M 144 54; M 144 49; M 144 55; M 144 49;
   M 144 49; M 144 55; M 144 40; M 144 47; M 144 40; M 144 46; M 144 47;
   M 144 46; M 144 47; M 144 47; M 144 40; M 144 40; M 144 48; M 144 48;
   M 144 48; M 144 48; M 144 47; M 144 40; M 144 40; M 144 48; M 144 47;
   M 144 48; M 144 47; M 144 47; M 144 40; M 144 40; M 144 47; M 144 46;
   M 144 46; M 144 46; M 144 46; M 144 46; M 144 47; M 144 40; M 144 40;
   M 144 40; M 144 46; M 144 46; M 144 48; M 144 48; M 144 48; M 144 40;
   M 144 46; M 144 46; M 144 48; M 144 48; M 144 47; M 144 52; M 144 51;
   M 144 51; M 144 52; M 144 51; M 144 50; M 144 50; M 144 50; M 144 51;
   M 144 50; M 144 52; M 144 51; M 144 51; M 144 50; M 144 52; M 144 50;
   M 144 52; M 144 52; M 144 49; M 144 43; M 144 49; M 144 42; M 144 54;
   M 144 49; M 144 55; M 144 55; M 144 49; M 144 49; M 144 49; M 144 49;
   M 144 49; M 144 49; M 144 55; M 144 55; M 144 49; M 144 41; M 144 42;
   M 144 54; M 144 49
  ].

(** Parse states 2700 to 2849. *)
Definition ts_lex_modes_2700 : list TSLexMode :=
  [
   M 144 54; M 144 54; M 144 54; M 144 54; M 144 43; M 144 49; M 144 49;
   M 144 55; M 144 55; M 144 55; M 144 43; M 144 41; M 144 49; M 144 54;
   M 144 41; M 144 49; M 144 49; M 144 49; M 144 54; M 144 54; M 144 49;
   M 144 49; M 144 55; M 144 49; M 144 55; M 144 49; M 144 43; M 144 41;
   M 144 54; M 144 42; M 144 42; M 144 55; M 144 55; M 144 54; M 144 49;
   M 144 49; M 4 56; M 4 56; M 4 57; M 4 57; M 4 57; M 4 57; M 4 57; M 4 57;
   M 4 57; M 4 57; M 4 57; M 4 57; M 4 57; M 4 57; M 4 57; M 4 57; M 4 57;
   M 4 57; M 4 57; M 4 57; M 4 57; M 4 57; M 4 57; M 145 58; M 8 59; M 8 59;
   M 8 60; M 8 60; M 7 61; M 7 62; M 7 61; M 7 63; M 7 63; M 7 63; M 7 63;
   M 7 63; M 7 63; M 7 63; M 7 63; M 7 63; M 7 63; M 7 63; M 8 63; M 7 63;
   M 7 63; M 7 63; M 7 63; M 7 63; M 7 63; M 7 63; M 7 63; M 7 63; M 7 63;
   M 7 63; M 7 63; M 7 63; M 7 63; M 7 63; M 7 63; M 7 63; M 8 63; M 7 63;
   M 7 63; M 7 63; M 7 63; M 7 63; M 8 64; M 7 63; M 7 63; M 7 63; M 7 63;
   M 7 63; M 7 63; M 7 63; M 7 63; M 8 64; M 7 63; M 7 63; M 7 63; M 7 63;
   M 7 63; M 7 63; M 7 62; M 7 63; M 7 63; M 7 63; M 7 63; M 7 63; M 7 63;
   M 7 63; M 7 63; M 7 63; M 7 63; M 7 63; M 7 62; M 7 63; M 7 63; M 11 65;
   M 11 65; M 7 63; M 7 63; M 7 63; M 7 62; M 7 63; M 7 63; M 7 63; M 7 63;
   M 7 63; M 7 63; M 7 63; M 7 63; M 7 62; M 7 63; M 7 63
  ].

(** Parse states 2850 to 2999. *)
Definition ts_lex_modes_2850 : list TSLexMode :=
  [
   M 7 63; M 11 66; M 8 67; M 4 68; M 10 69; M 8 67; M 10 69; M 10 69;
   M 10 69; M 34 70; M 4 68; M 4 68; M 10 69; M 4 68; M 10 69; M 10 69;
   M 10 69; M 4 68; M 4 68; M 34 70; M 4 68; M 4 68; M 4 68; M 4 68; M 4 68;
   M 10 69; M 4 68; M 4 68; M 10 69; M 34 70; M 4 68; M 4 68; M 4 68; M 4 68;
   M 8 71; M 8 72; M 11 66; M 10 69; M 145 58; M 145 58; M 4 68; M 8 71;
   M 11 66; M 34 70; M 11 66; M 10 69; M 4 68; M 11 66; M 4 68; M 10 69;
   M 34 70; M 4 68; M 11 66; M 11 66; M 11 66; M 4 68; M 10 69; M 10 69;
   M 8 72; M 11 66; M 34 70; M 34 70; M 10 69; M 8 73; M 34 70; M 34 70;
   M 4 68; M 8 73; M 34 70; M 7 63; M 4 68; M 10 69; M 11 66; M 10 69;
   M 10 69; M 10 69; M 10 69; M 10 69; M 10 69; M 10 69; M 10 69; M 10 69;
   M 10 69; M 10 69; M 10 69; M 10 69; M 10 69; M 10 69; M 10 69; M 10 69;
   M 10 69; M 10 69; M 10 69; M 10 69; M 10 69; M 10 69; M 10 69; M 10 69;
   M 10 69; M 10 69; M 10 69; M 10 69; M 10 69; M 10 69; M 7 59; M 34 74;
   M 10 69; M 10 69; M 10 69; M 8 75; M 10 69; M 10 69; M 10 69; M 8 76;
   M 10 69; M 10 69; M 10 69; M 34 74; M 34 74; M 10 69; M 10 69; M 10 69;
   M 10 69; M 145 58; M 10 69; M 10 69; M 10 69; M 8 76; M 10 69; M 10 69;
   M 145 58; M 10 69; M 10 69; M 10 69; M 34 74; M 10 69; M 10 69; M 10 69;
   M 145 58; M 10 69; M 10 69; M 8 75; M 10 69; M 34 74; M 10 69; M 10 69;
   M 10 69; M 10 69; M 10 69; M 10 69
  ].

(** Parse states 3000 to 3149. *)
Definition ts_lex_modes_3000 : list TSLexMode :=
  [
   M 10 69; M 10 69; M 10 69; M 10 69; M 10 69; M 10 69; M 10 69; M 10 69;
   M 10 69; M 10 69; M 10 69; M 145 58; M 10 69; M 10 69; M 10 69; M 10 69;
   M 10 69; M 145 58; M 10 69; M 10 69; M 10 69; M 10 69; M 10 69; M 10 69;
   M 10 69; M 10 69; M 10 69; M 10 69; M 10 69; M 10 69; M 10 69; M 10 69;
   M 10 69; M 10 69; M 10 69; M 10 69; M 10 69; M 10 69; M 8 77; M 10 69;
   M 10 69; M 10 69; M 10 69; M 34 74; M 10 69; M 10 69; M 10 69; M 10 69;
   M 10 69; M 34 74; M 34 74; M 10 69; M 34 74; M 34 74; M 10 69; M 7 59;
   M 10 69; M 8 77; M 10 69; M 7 78; M 11 79; M 11 79; M 11 80; M 7 78;
   M 7 78; M 11 80; M 11 80; M 11 80; M 4 81; M 7 78; M 7 78; M 7 78; M 7 78;
   M 4 81; M 7 78; M 7 78; M 7 78; M 7 78; M 7 78; M 7 78; M 7 78; M 8 78;
   M 7 78; M 8 78; M 7 78; M 7 78; M 11 80; M 11 80; M 7 78; M 7 78; M 7 78;
   M 7 60; M 7 78; M 7 78; M 7 78; M 7 78; M 4 81; M 7 78; M 7 78; M 7 78;
   M 7 78; M 7 78; M 7 78; M 7 78; M 7 78; M 7 78; M 7 78; M 7 78; M 7 78;
   M 7 78; M 7 78; M 7 78; M 4 81; M 4 81; M 4 81; M 7 78; M 7 78; M 7 78;
   M 4 81; M 11 80; M 4 81; M 7 78; M 7 78; M 4 81; M 7 78; M 4 81; M 4 81;
   M 8 82; M 7 78; M 4 81; M 4 81; M 4 81; M 7 78; M 7 78; M 7 78; M 7 78;
   M 4 81; M 11 65; M 4 81; M 8 82; M 7 78; M 4 81; M 7 78; M 7 78; M 7 78;
   M 4 81; M 11 80; M 7 78; M 4 81; M 11 80
  ].

(** Parse states 3150 to 3299. *)
Definition ts_lex_modes_3150 : list TSLexMode :=
  [
   M 4 81; M 11 80; M 7 78; M 7 78; M 7 78; M 7 78; M 7 78; M 7 78; M 7 78;
   M 7 78; M 7 78; M 4 83; M 11 79; M 7 78; M 11 79; M 11 79; M 11 79;
   M 11 79; M 11 79; M 11 79; M 11 79; M 7 78; M 3 84; M 7 78; M 4 81; M 4 83;
   M 4 83; M 4 83; M 4 83; M 4 83; M 34 85; M 4 83; M 34 86; M 7 78; M 34 86;
   M 4 83; M 4 83; M 7 78; M 4 83; M 34 85; M 4 83; M 4 83; M 4 83; M 4 83;
   M 7 78; M 4 83; M 7 78; M 4 83; M 4 83; M 7 87; M 4 83; M 7 78; M 34 85;
   M 4 83; M 7 78; M 7 78; M 7 87; M 4 83; M 4 83; M 4 83; M 4 83; M 4 83;
   M 4 83; M 4 83; M 4 83; M 4 83; M 4 83; M 4 83; M 4 83; M 4 83; M 4 83;
   M 4 83; M 7 78; M 4 83; M 4 83; M 4 83; M 4 83; M 4 83; M 4 83; M 4 83;
   M 4 83; M 4 83; M 4 83; M 34 85; M 4 83; M 4 83; M 4 83; M 4 83; M 4 83;
   M 4 83; M 4 83; M 4 83; M 4 83; M 4 83; M 4 83; M 4 83; M 4 83; M 4 83;
   M 4 83; M 34 85; M 4 83; M 4 83; M 7 78; M 4 83; M 4 83; M 4 83; M 4 83;
   M 4 83; M 7 78; M 4 83; M 4 83; M 4 83; M 4 83; M 4 83; M 4 83; M 4 83;
   M 4 83; M 4 83; M 4 83; M 4 83; M 4 83; M 4 83; M 4 83; M 4 83; M 4 83;
   M 4 83; M 4 83; M 4 83; M 4 83; M 4 83; M 4 83; M 7 78; M 4 83; M 4 83;
   M 4 83; M 4 83; M 4 83; M 4 83; M 34 85; M 4 83; M 4 83; M 4 83; M 4 83;
   M 4 83; M 4 83; M 4 83; M 4 83; M 4 83; M 4 83; M 4 83
  ].

(** Parse states 3300 to 3449. *)
Definition ts_lex_modes_3300 : list TSLexMode :=
  [
   M 4 83; M 7 78; M 4 83; M 4 83; M 4 83; M 4 83; M 4 83; M 34 85; M 4 83;
   M 4 83; M 34 85; M 4 83; M 4 83; M 4 83; M 4 83; M 4 83; M 4 83; M 4 83;
   M 4 83; M 4 83; M 4 83; M 10 69; M 7 78; M 4 83; M 4 83; M 4 83; M 10 69;
   M 4 83; M 4 83; M 7 78; M 7 78; M 4 83; M 4 83; M 4 83; M 4 83; M 4 83;
   M 4 83; M 4 83; M 7 78; M 4 83; M 4 83; M 10 69; M 7 78; M 4 83; M 34 85;
   M 4 83; M 7 78; M 4 83; M 4 83; M 4 83; M 7 78; M 4 83; M 7 78; M 34 86;
   M 4 83; M 7 78; M 34 85; M 4 83; M 7 78; M 4 83; M 4 83; M 34 86; M 34 86;
   M 34 86; M 4 83; M 7 78; M 4 83; M 34 86; M 34 86; M 4 83; M 34 86; M 4 83;
   M 34 86; M 4 83; M 3 88; M 4 83; M 4 83; M 4 83; M 4 83; M 4 83; M 4 83;
   M 4 83; M 4 83; M 4 83; M 4 83; M 4 83; M 4 83; M 4 83; M 7 89; M 7 89;
   M 7 64; M 34 90; M 34 91; M 34 92; M 34 92; M 11 44; M 7 78; M 11 93;
   M 7 89; M 34 92; M 34 92; M 34 92; M 7 94; M 7 89; M 7 78; M 7 78; M 34 91;
   M 34 92; M 11 44; M 34 90; M 11 93; M 7 89; M 34 91; M 7 78; M 11 93;
   M 34 90; M 34 91; M 11 93; M 11 44; M 34 91; M 7 94; M 3 95; M 11 44;
   M 7 78; M 11 93; M 7 78; M 11 44; M 11 44; M 7 78; M 7 78; M 11 93;
   M 34 92; M 34 90; M 7 89; M 7 78; M 7 89; M 11 93; M 7 89; M 11 93;
   M 34 91; M 11 93; M 7 64; M 34 91; M 7 89; M 7 78; M 7 63; M 7 78; M 11 44;
   M 7 78; M 34 90
  ].

(** Parse states 3450 to 3599. *)
Definition ts_lex_modes_3450 : list TSLexMode :=
  [
   M 34 91; M 34 90; M 34 90; M 34 90; M 7 78; M 34 91; M 7 89; M 11 93;
   M 3 95; M 34 91; M 34 90; M 34 92; M 7 89; M 34 92; M 11 44; M 3 95;
   M 11 44; M 7 89; M 11 44; M 7 89; M 7 78; M 7 78; M 34 92; M 7 89; M 34 90;
   M 7 96; M 7 78; M 7 78; M 11 44; M 11 70; M 7 78; M 7 78; M 34 97; M 7 78;
   M 7 78; M 7 78; M 11 44; M 7 78; M 7 78; M 7 78; M 9 87; M 11 44; M 7 78;
   M 7 78; M 11 44; M 11 44; M 34 98; M 7 78; M 34 98; M 11 44; M 11 44;
   M 145 99; M 7 78; M 7 78; M 11 70; M 7 96; M 7 78; M 11 70; M 34 98;
   M 11 44; M 34 97; M 11 44; M 7 78; M 34 97; M 7 78; M 7 78; M 34 97;
   M 7 78; M 7 78; M 11 44; M 7 78; M 7 78; M 34 98; M 7 78; M 7 78; M 145 99;
   M 7 78; M 7 78; M 34 98; M 7 72; M 7 78; M 7 78; M 7 67; M 7 78; M 9 78;
   M 7 78; M 145 99; M 7 78; M 7 78; M 7 78; M 7 78; M 7 78; M 7 78; M 11 70;
   M 34 97; M 11 70; M 7 78; M 7 78; M 7 73; M 7 78; M 7 78; M 7 78; M 7 78;
   M 34 97; M 11 44; M 7 78; M 7 78; M 7 78; M 34 100; M 7 78; M 11 44;
   M 34 98; M 7 78; M 34 98; M 7 78; M 7 78; M 11 101; M 7 78; M 7 78;
   M 145 99; M 7 78; M 34 98; M 7 78; M 7 78; M 11 101; M 11 101; M 11 101;
   M 11 101; M 34 102; M 7 78; M 34 98; M 7 78; M 11 101; M 7 78; M 7 78;
   M 11 101; M 11 101; M 7 78; M 34 102; M 34 102; M 7 78; M 7 78; M 34 102;
   M 34 102; M 34 102; M 34 102; M 7 78; M 34 100; M 7 78; M 34 102
  ].

(** Parse states 3600 to 3749. *)
Definition ts_lex_modes_3600 : list TSLexMode :=
  [
   M 7 78; M 145 99; M 11 101; M 7 78; M 7 78; M 7 78; M 7 78; M 7 78; M 7 78;
   M 34 100; M 11 101; M 7 78; M 7 78; M 7 78; M 7 78; M 7 78; M 7 78; M 7 78;
   M 11 44; M 7 78; M 7 78; M 7 78; M 34 100; M 34 98; M 7 78; M 7 78;
   M 11 44; M 7 71; M 7 71; M 11 44; M 34 97; M 34 102; M 145 99; M 7 78;
   M 34 100; M 11 44; M 11 44; M 34 100; M 34 97; M 7 78; M 7 78; M 34 102;
   M 7 78; M 34 100; M 11 44; M 11 44; M 7 78; M 7 78; M 11 44; M 34 100;
   M 7 73; M 34 100; M 11 44; M 7 78; M 7 78; M 145 99; M 7 78; M 11 44;
   M 7 78; M 11 70; M 7 78; M 7 78; M 7 71; M 11 44; M 11 44; M 7 78; M 7 78;
   M 7 78; M 7 78; M 7 78; M 7 78; M 7 78; M 7 78; M 7 78; M 7 78; M 7 78;
   M 7 78; M 7 78; M 7 78; M 145 99; M 7 78; M 7 78; M 7 78; M 7 78; M 7 78;
   M 7 78; M 7 78; M 7 78; M 7 78; M 7 78; M 7 78; M 34 97; M 7 78; M 7 78;
   M 145 99; M 7 78; M 7 78; M 7 78; M 7 78; M 7 78; M 145 99; M 7 78; M 7 78;
   M 7 78; M 7 72; M 7 73; M 7 78; M 145 99; M 7 78; M 7 78; M 11 70; M 7 78;
   M 145 99; M 7 78; M 7 78; M 145 99; M 7 78; M 7 78; M 145 99; M 7 78;
   M 7 78; M 145 99; M 7 78; M 145 99; M 7 78; M 145 99; M 7 78; M 145 99;
   M 7 78; M 7 78; M 145 99; M 7 78; M 11 44; M 145 99; M 34 97; M 7 78;
   M 7 78; M 7 78; M 7 96; M 7 78; M 7 78; M 7 78; M 7 78; M 7 78; M 7 78;
   M 7 78; M 7 78; M 11 70; M 7 71; M 7 78
  ].

(** Parse states 3750 to 3899. *)
Definition ts_lex_modes_3750 : list TSLexMode :=
  [
   M 7 78; M 7 78; M 7 78; M 34 100; M 7 78; M 7 78; M 11 70; M 7 78; M 11 44;
   M 7 78; M 7 78; M 7 78; M 7 78; M 7 78; M 7 78; M 7 78; M 11 70; M 7 78;
   M 9 87; M 7 78; M 7 96; M 7 96; M 7 96; M 7 96; M 7 96; M 7 96; M 7 96;
   M 7 96; M 7 96; M 7 96; M 7 96; M 7 96; M 7 96; M 7 96; M 7 96; M 7 96;
   M 7 96; M 7 96; M 7 96; M 7 78; M 7 96; M 7 96; M 7 96; M 7 96; M 7 96;
   M 7 96; M 7 96; M 7 96; M 7 96; M 7 96; M 7 96; M 7 96; M 7 96; M 7 96;
   M 7 96; M 7 78; M 7 78; M 7 78; M 11 74; M 7 78; M 7 78; M 7 78; M 7 78;
   M 7 83; M 7 78; M 7 83; M 7 78; M 7 76; M 7 78; M 7 78; M 7 78; M 11 74;
   M 7 78; M 7 78; M 7 75; M 7 78; M 7 78; M 34 103; M 7 78; M 7 78; M 11 74;
   M 7 78; M 11 104; M 7 78; M 7 78; M 10 69; M 7 83; M 34 105; M 7 78;
   M 7 78; M 11 104; M 7 76; M 34 103; M 7 78; M 7 78; M 7 78; M 9 78;
   M 34 105; M 7 78; M 7 78; M 7 78; M 7 76; M 7 78; M 7 78; M 7 78; M 34 103;
   M 34 103; M 34 103; M 7 78; M 7 78; M 34 103; M 34 103; M 7 78; M 7 78;
   M 7 78; M 7 78; M 7 76; M 7 78; M 7 78; M 7 78; M 7 83; M 7 76; M 34 105;
   M 7 78; M 7 78; M 34 105; M 10 69; M 7 78; M 7 78; M 9 78; M 10 69; M 7 78;
   M 7 78; M 10 69; M 7 76; M 10 69; M 7 78; M 7 78; M 9 78; M 7 78; M 7 78;
   M 7 78; M 7 78; M 7 78; M 7 78; M 7 78; M 7 78; M 7 78; M 7 78; M 7 78
  ].

(** Parse states 3900 to 4049. *)
Definition ts_lex_modes_3900 : list TSLexMode :=
  [
   M 7 78; M 3 106; M 7 78; M 7 78; M 7 78; M 7 76; M 7 78; M 7 78; M 7 78;
   M 7 78; M 7 78; M 7 78; M 7 78; M 7 78; M 7 78; M 7 78; M 7 78; M 7 78;
   M 7 78; M 7 78; M 7 78; M 7 78; M 7 78; M 7 78; M 7 78; M 7 78; M 7 78;
   M 7 78; M 7 78; M 7 78; M 7 78; M 7 78; M 7 78; M 7 78; M 34 103; M 7 78;
   M 7 78; M 7 78; M 7 78; M 7 78; M 7 78; M 7 78; M 7 78; M 7 78; M 7 78;
   M 7 78; M 7 78; M 7 78; M 7 78; M 7 78; M 7 78; M 7 78; M 7 76; M 7 76;
   M 10 69; M 10 69; M 145 99; M 7 78; M 7 78; M 34 103; M 7 76; M 10 69;
   M 7 78; M 145 99; M 7 78; M 7 78; M 7 78; M 34 105; M 7 77; M 3 107;
   M 145 99; M 7 78; M 7 78; M 145 99; M 34 105; M 7 76; M 34 105; M 145 99;
   M 3 106; M 7 78; M 34 105; M 7 78; M 145 99; M 7 78; M 7 78; M 11 74;
   M 11 74; M 145 99; M 34 105; M 34 105; M 145 99; M 145 99; M 145 99;
   M 145 99; M 145 99; M 145 99; M 145 99; M 145 99; M 145 99; M 145 99;
   M 145 99; M 145 99; M 145 99; M 9 78; M 11 74; M 145 99; M 7 78; M 7 78;
   M 7 78; M 7 78; M 7 78; M 7 78; M 7 78; M 7 78; M 7 78; M 10 69; M 7 76;
   M 7 78; M 34 103; M 11 74; M 7 78; M 11 74; M 11 74; M 7 76; M 10 69;
   M 7 83; M 11 74; M 7 78; M 7 76; M 7 78; M 10 69; M 7 78; M 10 69; M 7 76;
   M 7 78; M 7 78; M 3 107; M 7 78; M 7 78; M 7 78; M 11 108; M 11 108;
   M 11 108; M 11 108; M 11 108; M 11 108; M 11 108; M 11 108; M 11 108;
   M 11 109
  ].

(** Parse states 4050 to 4199. *)
Definition ts_lex_modes_4050 : list TSLexMode :=
  [
   M 11 108; M 11 109; M 11 109; M 11 109; M 11 109; M 11 109; M 11 109;
   M 11 109; M 144 107; M 3 107; M 7 78; M 7 78; M 7 78; M 11 109; M 11 109;
   M 7 78; M 11 103; M 7 78; M 7 110; M 7 78; M 7 78; M 7 78; M 7 78;
   M 11 103; M 7 78; M 7 78; M 7 78; M 7 110; M 10 69; M 7 78; M 7 78;
   M 11 103; M 11 103; M 144 107; M 144 107; M 145 69; M 10 69; M 7 78;
   M 144 44; M 144 44; M 11 103; M 11 103; M 10 69; M 10 69; M 145 111;
   M 7 78; M 7 78; M 145 111; M 7 78; M 7 78; M 7 78; M 7 112; M 7 78;
   M 7 110; M 145 69; M 7 78; M 7 78; M 7 78; M 7 78; M 145 69; M 7 78;
   M 7 78; M 7 78; M 7 78; M 145 69; M 7 78; M 7 78; M 7 78; M 7 78; M 145 69;
   M 7 78; M 144 107; M 144 107; M 7 78; M 7 78; M 7 78; M 145 69; M 7 78;
   M 7 78; M 7 78; M 7 78; M 7 78; M 145 69; M 7 112; M 7 78; M 144 107;
   M 3 107; M 7 78; M 7 78; M 145 69; M 7 78; M 7 78; M 11 103; M 7 78;
   M 7 78; M 7 78; M 7 78; M 7 78; M 7 78; M 7 78; M 7 78; M 7 78; M 7 78;
   M 7 78; M 11 103; M 7 78; M 7 78; M 11 103; M 7 78; M 7 78; M 7 78; M 7 78;
   M 7 78; M 7 78; M 7 78; M 7 78; M 7 78; M 7 78; M 7 78; M 7 78; M 7 78;
   M 7 78; M 7 78; M 7 78; M 7 78; M 7 78; M 7 78; M 7 78; M 7 78; M 7 78;
   M 7 78; M 7 78; M 7 78; M 7 78; M 7 78; M 7 78; M 7 78; M 7 78; M 7 78;
   M 7 78; M 7 78; M 7 78; M 7 78; M 7 78; M 7 78; M 7 78; M 7 78; M 7 78;
   M 7 78; M 11 103
  ].

(** Parse states 4200 to 4349. *)
Definition ts_lex_modes_4200 : list TSLexMode :=
  [
   M 7 78; M 7 78; M 7 78; M 7 78; M 7 78; M 7 78; M 7 78; M 7 78; M 7 78;
   M 7 78; M 7 78; M 7 78; M 7 78; M 7 78; M 7 78; M 7 78; M 7 78; M 7 78;
   M 7 78; M 7 78; M 7 78; M 7 78; M 7 78; M 7 78; M 7 78; M 7 78; M 7 78;
   M 7 78; M 11 85; M 7 78; M 7 78; M 7 78; M 7 78; M 7 78; M 7 78; M 7 78;
   M 7 78; M 11 85; M 11 85; M 7 78; M 11 85; M 11 85; M 11 85; M 11 85;
   M 7 78; M 11 85; M 7 78; M 144 107; M 7 78; M 7 78; M 7 78; M 7 78; M 7 78;
   M 7 78; M 7 78; M 7 78; M 7 78; M 11 86; M 7 78; M 7 78; M 7 78; M 7 78;
   M 7 78; M 7 78; M 11 86; M 11 86; M 7 78; M 11 86; M 11 86; M 11 86;
   M 11 86; M 7 78; M 11 86; M 11 85; M 7 78; M 11 85; M 7 78; M 7 78; M 7 78;
   M 7 78; M 7 78; M 144 107; M 7 78; M 7 78; M 7 78; M 7 78; M 7 78; M 7 78;
   M 7 78; M 7 78; M 7 78; M 7 78; M 7 78; M 7 78; M 7 78; M 11 86; M 7 78;
   M 11 86; M 7 78; M 7 78; M 7 78; M 7 78; M 7 78; M 7 78; M 7 78; M 7 78;
   M 7 78; M 7 78; M 7 78; M 7 78; M 7 78; M 7 78; M 7 78; M 7 78; M 7 78;
   M 7 78; M 11 113; M 7 78; M 7 78; M 7 78; M 7 78; M 7 78; M 7 78; M 7 78;
   M 7 78; M 144 107; M 7 78; M 7 78; M 7 78; M 7 78; M 7 78; M 7 78; M 7 78;
   M 7 78; M 7 78; M 7 78; M 7 78; M 7 78; M 7 78; M 7 78; M 11 113; M 7 78;
   M 7 78; M 7 78; M 7 78; M 7 78; M 7 78; M 7 78; M 7 78; M 7 78
  ].

(** Parse states 4350 to 4499. *)
Definition ts_lex_modes_4350 : list TSLexMode :=
  [
   M 7 78; M 35 103; M 7 78; M 7 78; M 7 78; M 7 78; M 7 78; M 7 78; M 7 78;
   M 7 78; M 7 78; M 7 78; M 7 78; M 7 78; M 35 103; M 35 103; M 7 78; M 7 78;
   M 35 103; M 35 103; M 7 78; M 7 78; M 7 78; M 7 78; M 7 78; M 7 78; M 7 78;
   M 7 78; M 7 78; M 35 103; M 35 103; M 7 78; M 35 103; M 7 78; M 7 78;
   M 7 78; M 7 78; M 7 78; M 7 78; M 7 78; M 7 78; M 7 78; M 7 78; M 7 78;
   M 7 78; M 7 78; M 7 78; M 7 78; M 7 78; M 7 78; M 7 78; M 7 78; M 7 78;
   M 7 78; M 7 78; M 7 78; M 7 78; M 7 78; M 7 78; M 35 103; M 7 78; M 7 78;
   M 11 114; M 35 103; M 7 78; M 7 78; M 7 78; M 7 78; M 7 78; M 7 78;
   M 11 113; M 11 114; M 11 114; M 7 78; M 7 78; M 7 78; M 11 114; M 11 114;
   M 145 111; M 7 78; M 7 78; M 7 78; M 7 78; M 7 78; M 7 78; M 7 78;
   M 11 114; M 11 114; M 7 78; M 7 78; M 7 78; M 7 78; M 7 78; M 7 78; M 7 78;
   M 11 114; M 7 78; M 7 78; M 7 78; M 7 78; M 7 78; M 7 78; M 7 78; M 7 78;
   M 7 78; M 7 78; M 7 78; M 7 78; M 7 78; M 7 78; M 7 78; M 7 78; M 7 78;
   M 7 78; M 7 78; M 7 78; M 7 78; M 7 78; M 7 78; M 7 78; M 7 78; M 7 78;
   M 7 78; M 7 78; M 7 78; M 7 78; M 7 78; M 145 69; M 7 78; M 7 78; M 7 78;
   M 7 78; M 7 78; M 7 78; M 7 78; M 7 78; M 7 78; M 7 78; M 7 78; M 7 78;
   M 7 78; M 7 78; M 7 78; M 7 78; M 7 78; M 7 78; M 7 78; M 7 78; M 7 78;
   M 7 78
  ].

(** Parse states 4500 to 4649. *)
Definition ts_lex_modes_4500 : list TSLexMode :=
  [
   M 7 78; M 7 78; M 7 78; M 144 107; M 144 107; M 7 78; M 144 107; M 7 78;
   M 7 78; M 7 78; M 7 78; M 7 78; M 7 78; M 7 78; M 7 78; M 7 78; M 7 78;
   M 7 78; M 7 78; M 7 78; M 145 69; M 7 78; M 7 78; M 7 78; M 7 78; M 7 78;
   M 7 78; M 7 78; M 7 78; M 7 78; M 11 114; M 7 78; M 7 78; M 11 115;
   M 11 114; M 7 78; M 7 78; M 7 78; M 7 78; M 7 78; M 7 78; M 7 78; M 7 78;
   M 11 115; M 7 78; M 7 78; M 11 115; M 7 78; M 7 78; M 11 115; M 11 115;
   M 7 78; M 7 78; M 7 78; M 7 78; M 7 78; M 7 78; M 7 78; M 11 115; M 11 115;
   M 7 78; M 7 78; M 7 78; M 7 78; M 7 78; M 7 78; M 7 78; M 11 115; M 7 78;
   M 7 78; M 7 78; M 7 78; M 11 116; M 7 78; M 7 78; M 7 78; M 7 78; M 7 78;
   M 7 78; M 7 78; M 7 78; M 11 116; M 11 116; M 7 78; M 7 78; M 7 78; M 7 78;
   M 11 116; M 11 116; M 7 78; M 7 78; M 7 78; M 7 78; M 11 116; M 11 116;
   M 7 78; M 7 78; M 11 116; M 7 78; M 7 78; M 7 78; M 7 78; M 7 78; M 7 78;
   M 7 78; M 7 78; M 7 78; M 7 78; M 7 78; M 7 78; M 7 78; M 7 78; M 7 78;
   M 7 78; M 7 78; M 7 78; M 7 78; M 7 78; M 7 78; M 7 78; M 7 78; M 7 78;
   M 7 78; M 7 78; M 7 78; M 7 78; M 7 78; M 7 78; M 7 78; M 7 78; M 7 78;
   M 7 78; M 7 78; M 7 78; M 7 78; M 7 78; M 11 115; M 7 78; M 7 78; M 7 78;
   M 11 115; M 7 78; M 7 78; M 7 78; M 7 78; M 7 78; M 7 78; M 7 78; M 7 78;
   M 7 78
  ].

(** Parse states 4650 to 4799. *)
Definition ts_lex_modes_4650 : list TSLexMode :=
  [
   M 7 78; M 7 78; M 7 78; M 7 78; M 7 78; M 7 78; M 7 78; M 7 78; M 7 78;
   M 7 78; M 7 78; M 7 78; M 7 78; M 7 78; M 7 78; M 7 78; M 7 78; M 7 78;
   M 7 78; M 11 116; M 7 78; M 7 78; M 7 78; M 7 78; M 11 116; M 7 78; M 7 78;
   M 7 78; M 7 78; M 7 78; M 7 78; M 7 78; M 7 78; M 7 78; M 7 78; M 7 78;
   M 7 78; M 7 78; M 7 78; M 7 78; M 7 78; M 7 78; M 7 78; M 7 78; M 7 78;
   M 7 78; M 7 78; M 7 78; M 7 78; M 7 78; M 7 78; M 7 78; M 7 78; M 7 78;
   M 7 78; M 7 78; M 7 78; M 7 78; M 7 78; M 7 78; M 7 78; M 7 78; M 7 78;
   M 7 78; M 7 78; M 7 78; M 7 78; M 7 78; M 7 78; M 7 78; M 7 78; M 7 78;
   M 7 78; M 145 111; M 7 78; M 7 78; M 7 78; M 7 78; M 7 78; M 7 78; M 7 78;
   M 7 78; M 7 78; M 7 78; M 7 78; M 7 78; M 7 78; M 7 78; M 144 107; M 7 78;
   M 7 78; M 7 78; M 7 78; M 7 78; M 144 107; M 7 78; M 7 78; M 7 78; M 7 78;
   M 7 78; M 7 78; M 7 78; M 7 78; M 7 78; M 7 78; M 7 78; M 7 78; M 7 78;
   M 7 78; M 7 78; M 7 78; M 7 78; M 7 78; M 7 78; M 7 78; M 7 78; M 7 78;
   M 7 78; M 7 78; M 7 78; M 7 78; M 7 78; M 7 78; M 7 78; M 7 78; M 7 78;
   M 7 78; M 7 78; M 7 78; M 7 78; M 7 78; M 7 78; M 7 78; M 7 78; M 7 78;
   M 7 78; M 7 78; M 7 78; M 7 78; M 7 78; M 7 78; M 7 78; M 7 78; M 7 78;
   M 7 78; M 7 78; M 7 78; M 7 78; M 7 78; M 7 78
  ].

(** Parse states 4800 to 4949. *)
Definition ts_lex_modes_4800 : list TSLexMode :=
  [
   M 7 78; M 7 78; M 7 78; M 7 78; M 7 78; M 7 78; M 7 78; M 7 78; M 7 78;
   M 7 78; M 7 78; M 7 78; M 7 78; M 7 78; M 7 78; M 7 78; M 7 78; M 7 78;
   M 7 78; M 7 78; M 7 78; M 7 78; M 7 78; M 7 78; M 7 78; M 7 78; M 7 78;
   M 7 78; M 7 78; M 7 78; M 7 78; M 7 78; M 7 78; M 7 78; M 7 78; M 7 78;
   M 7 78; M 7 78; M 7 78; M 7 78; M 7 78; M 7 78; M 7 78; M 7 78; M 7 78;
   M 7 78; M 7 78; M 7 78; M 7 78; M 7 78; M 7 78; M 7 78; M 7 78; M 7 78;
   M 7 78; M 7 78; M 7 78; M 7 78; M 7 78; M 7 78; M 7 78; M 7 78; M 7 78;
   M 7 78; M 7 78; M 7 78; M 7 78; M 7 78; M 7 78; M 7 78; M 7 78; M 7 78;
   M 7 78; M 7 78; M 7 78; M 145 111; M 144 107; M 7 78; M 144 107; M 7 78;
   M 7 78; M 7 78; M 7 78; M 7 78; M 144 107; M 7 78; M 7 78; M 7 78;
   M 144 107; M 7 78; M 7 78; M 144 107; M 7 78; M 7 78; M 7 78; M 7 78;
   M 7 78; M 7 78; M 7 78; M 7 78; M 7 78; M 7 78; M 7 78; M 7 78; M 11 117;
   M 7 78; M 7 78; M 7 78; M 7 78; M 7 78; M 7 78; M 7 78; M 7 78; M 7 78;
   M 7 78; M 7 78; M 7 78; M 7 78; M 7 78; M 7 78; M 7 78; M 7 78; M 7 78;
   M 7 78; M 7 78; M 7 78; M 7 78; M 7 78; M 7 78; M 7 78; M 7 78; M 7 78;
   M 7 78; M 7 78; M 7 78; M 7 78; M 7 78; M 7 78; M 7 78; M 7 78; M 7 78;
   M 144 107; M 7 78; M 7 78; M 7 78; M 11 117; M 7 78; M 7 78; M 7 78; M 7 78
  ].

(** Parse states 4950 to 5099. *)
Definition ts_lex_modes_4950 : list TSLexMode :=
  [
   M 7 78; M 11 117; M 7 78; M 7 78; M 7 78; M 7 78; M 7 78; M 7 78; M 7 78;
   M 7 78; M 7 78; M 7 78; M 7 78; M 7 78; M 7 78; M 7 78; M 7 78; M 7 78;
   M 7 78; M 144 107; M 11 117; M 7 78; M 7 78; M 11 117; M 7 78; M 7 78;
   M 7 78; M 11 117; M 7 78; M 11 113; M 11 117; M 7 78; M 7 78; M 7 78;
   M 7 78; M 7 78; M 7 78; M 7 78; M 7 78; M 7 78; M 7 78; M 7 78; M 7 78;
   M 7 78; M 7 78; M 7 78; M 7 78; M 7 78; M 11 117; M 7 78; M 7 78; M 7 78;
   M 7 78; M 7 78; M 7 78; M 7 78; M 7 78; M 7 78; M 7 78; M 7 78; M 7 78;
   M 7 78; M 7 78; M 7 78; M 7 78; M 7 78; M 7 78; M 144 107; M 7 78; M 7 78;
   M 7 78; M 7 78; M 7 78; M 7 78; M 7 78; M 7 78; M 7 78; M 7 78; M 7 78;
   M 7 78; M 7 78; M 7 78; M 7 78; M 7 78; M 7 78; M 7 78; M 7 78; M 7 78;
   M 7 78; M 7 78; M 144 107; M 7 78; M 7 78; M 7 78; M 7 78; M 7 78; M 7 78;
   M 7 78; M 7 78; M 7 78; M 7 78; M 7 78; M 7 78; M 7 78; M 7 78; M 7 78;
   M 7 78; M 7 78; M 7 78; M 7 78; M 7 78; M 7 78; M 7 78; M 7 78; M 7 78;
   M 7 78; M 7 78; M 144 107; M 7 78; M 7 78; M 7 78; M 7 78; M 7 78; M 7 78;
   M 7 78; M 7 78; M 7 78; M 7 78; M 7 78; M 7 78; M 7 78; M 7 78; M 7 78;
   M 7 78; M 7 78; M 7 78; M 7 78; M 7 78; M 7 78; M 7 78; M 7 78; M 7 78;
   M 7 78; M 7 78; M 7 78; M 7 78; M 145 111; M 7 78; M 7 78; M 7 78
  ].

(** Parse states 5100 to 5249. *)
Definition ts_lex_modes_5100 : list TSLexMode :=
  [
   M 7 78; M 7 78; M 7 78; M 7 78; M 7 78; M 7 78; M 7 78; M 7 78; M 7 78;
   M 7 78; M 11 113; M 7 78; M 7 78; M 7 78; M 7 78; M 7 78; M 7 78; M 7 78;
   M 7 78; M 7 78; M 11 113; M 7 78; M 7 78; M 7 78; M 7 78; M 7 78; M 7 78;
   M 7 78; M 145 111; M 7 78; M 7 78; M 7 78; M 11 113; M 7 78; M 7 78;
   M 7 78; M 7 78; M 7 78; M 7 78; M 7 78; M 145 111; M 7 78; M 11 113;
   M 7 78; M 7 78; M 7 78; M 7 78; M 7 78; M 7 78; M 7 78; M 7 78; M 7 78;
   M 7 78; M 7 78; M 7 78; M 7 78; M 7 78; M 7 78; M 7 78; M 7 78; M 7 78;
   M 7 78; M 7 78; M 7 78; M 7 78; M 7 78; M 7 78; M 7 78; M 7 78; M 7 78;
   M 7 78; M 7 78; M 7 78; M 7 78; M 7 78; M 7 78; M 7 78; M 7 78; M 7 78;
   M 7 78; M 7 78; M 7 78; M 7 78; M 7 78; M 7 78; M 7 78; M 7 78; M 7 78;
   M 7 78; M 7 78; M 7 78; M 7 78; M 7 78; M 7 78; M 7 78; M 7 78; M 7 78;
   M 7 78; M 7 78; M 7 78; M 7 78; M 7 78; M 144 107; M 7 78; M 7 78; M 7 78;
   M 7 78; M 7 78; M 7 78; M 7 78; M 7 78; M 145 111; M 7 78; M 145 111;
   M 7 78; M 7 78; M 7 78; M 7 78; M 7 78; M 7 78; M 7 78; M 7 78; M 7 78;
   M 7 78; M 7 78; M 7 78; M 7 78; M 7 78; M 7 78; M 7 78; M 7 78; M 7 78;
   M 144 107; M 7 78; M 7 78; M 7 78; M 7 78; M 7 78; M 7 78; M 7 78; M 7 78;
   M 7 78; M 7 78; M 7 78; M 7 78; M 7 78; M 7 78; M 7 78; M 7 78; M 7 78
  ].

(** Parse states 5250 to 5399. *)
Definition ts_lex_modes_5250 : list TSLexMode :=
  [
   M 7 78; M 7 78; M 7 78; M 7 78; M 7 78; M 7 78; M 7 78; M 7 78; M 7 78;
   M 7 78; M 7 78; M 7 78; M 7 78; M 7 78; M 7 78; M 7 78; M 7 78; M 7 78;
   M 7 78; M 7 78; M 7 78; M 7 78; M 7 78; M 7 78; M 7 78; M 7 78; M 7 78;
   M 7 78; M 7 78; M 7 78; M 7 78; M 7 78; M 7 78; M 7 78; M 7 78; M 7 78;
   M 7 78; M 7 78; M 7 78; M 7 78; M 7 78; M 7 78; M 7 78; M 7 78; M 7 78;
   M 7 78; M 7 78; M 7 78; M 7 78; M 7 78; M 7 78; M 7 78; M 7 78; M 7 78;
   M 7 78; M 7 78; M 7 78; M 7 78; M 144 107; M 7 78; M 7 78; M 7 78; M 7 78;
   M 7 78; M 7 78; M 145 69; M 7 78; M 7 78; M 7 78; M 7 78; M 7 78; M 7 78;
   M 7 78; M 7 78; M 7 78; M 7 78; M 7 78; M 7 78; M 7 78; M 7 78; M 144 107;
   M 144 107; M 7 78; M 7 78; M 7 78; M 7 78; M 7 78; M 145 69; M 11 118;
   M 7 78; M 7 78; M 7 78; M 7 78; M 7 78; M 7 78; M 7 78; M 7 78; M 11 113;
   M 7 78; M 7 78; M 7 78; M 7 78; M 7 78; M 145 69; M 7 78; M 7 78; M 7 78;
   M 11 118; M 7 78; M 11 113; M 11 118; M 7 78; M 7 78; M 7 78; M 7 78;
   M 7 78; M 145 69; M 7 78; M 7 78; M 11 118; M 11 118; M 7 78; M 11 118;
   M 7 78; M 11 118; M 7 78; M 7 78; M 7 78; M 7 78; M 145 69; M 7 78; M 7 78;
   M 11 118; M 7 78; M 11 117; M 7 78; M 7 78; M 7 78; M 7 78; M 7 78;
   M 145 69; M 7 78; M 7 78; M 7 78; M 11 117; M 7 78; M 7 78; M 7 78;
   M 145 69; M 7 78
  ].

(** Parse states 5400 to 5549. *)
Definition ts_lex_modes_5400 : list TSLexMode :=
  [
   M 7 78; M 7 78; M 7 78; M 7 78; M 7 78; M 7 78; M 7 78; M 7 78; M 7 78;
   M 7 78; M 7 78; M 7 78; M 7 78; M 7 78; M 7 78; M 7 78; M 7 78; M 7 78;
   M 7 78; M 7 78; M 7 78; M 7 78; M 7 78; M 7 78; M 7 78; M 7 78; M 7 78;
   M 145 111; M 145 111; M 7 78; M 7 78; M 145 111; M 7 78; M 7 78; M 7 78;
   M 145 111; M 145 111; M 7 78; M 7 78; M 145 111; M 145 111; M 145 111;
   M 7 78; M 7 78; M 145 111; M 7 78; M 145 111; M 145 111; M 7 78; M 7 78;
   M 145 111; M 145 111; M 145 111; M 7 78; M 7 78; M 145 111; M 7 78;
   M 145 111; M 145 111; M 7 78; M 7 78; M 145 111; M 7 78; M 7 78; M 7 78;
   M 7 78; M 7 78; M 7 78; M 7 78; M 7 78; M 7 78; M 7 78; M 7 78; M 7 78;
   M 7 78; M 7 78; M 7 78; M 7 78; M 7 78; M 7 78; M 7 78; M 7 78; M 7 78;
   M 7 78; M 7 78; M 7 78; M 7 78; M 7 78; M 7 78; M 7 78; M 7 78; M 7 78;
   M 7 78; M 7 78; M 7 78; M 7 78; M 7 78; M 7 78; M 7 78; M 7 78; M 7 78;
   M 7 78; M 7 78; M 7 78; M 7 78; M 7 78; M 7 78; M 7 78; M 7 78; M 7 78;
   M 7 78; M 7 78; M 7 78; M 7 78; M 7 78; M 7 78; M 7 78; M 7 78; M 7 78;
   M 7 78; M 7 78; M 7 78; M 7 78; M 11 118; M 7 78; M 145 111; M 11 118;
   M 7 78; M 7 78; M 7 78; M 3 119; M 11 120; M 31 113; M 11 90; M 11 120;
   M 11 120; M 31 113; M 11 90; M 11 91; M 11 90; M 31 113; M 11 90; M 11 90;
   M 3 119; M 11 120; M 145 99; M 11 90; M 11 90; M 144 107; M 11 121
  ].

(** Parse states 5550 to 5699. *)
Definition ts_lex_modes_5550 : list TSLexMode :=
  [
   M 11 91; M 31 113; M 11 91; M 11 90; M 11 122; M 11 122; M 31 113; M 11 91;
   M 31 113; M 31 113; M 11 122; M 11 122; M 31 113; M 11 91; M 145 111;
   M 11 91; M 11 91; M 11 91; M 11 121; M 11 122; M 11 123; M 144 107;
   M 11 120; M 11 121; M 11 120; M 11 120; M 144 107; M 11 122; M 11 92;
   M 11 92; M 11 123; M 11 123; M 11 121; M 11 92; M 11 92; M 11 92; M 11 92;
   M 11 123; M 144 107; M 11 123; M 3 119; M 11 122; M 11 123; M 11 123;
   M 144 107; M 11 120; M 144 107; M 11 123; M 11 121; M 11 121; M 11 123;
   M 11 92; M 3 119; M 11 123; M 3 119; M 3 119; M 3 119; M 11 122; M 11 122;
   M 31 103; M 144 107; M 3 119; M 3 119; M 144 107; M 3 119; M 11 92;
   M 3 119; M 3 119; M 11 92; M 3 119; M 3 119; M 11 90; M 3 119; M 3 119;
   M 11 90; M 6 11; M 3 119; M 3 119; M 144 107; M 3 119; M 31 103; M 11 121;
   M 3 119; M 3 119; M 11 121; M 3 119; M 145 69; M 3 119; M 3 119; M 3 119;
   M 3 119; M 31 103; M 3 119; M 3 119; M 3 119; M 3 119; M 3 119; M 3 119;
   M 3 119; M 3 119; M 3 119; M 3 119; M 11 92; M 3 119; M 3 119; M 11 91;
   M 3 119; M 3 119; M 144 107; M 31 113; M 144 107; M 11 121; M 31 103;
   M 11 120; M 11 120; M 145 111; M 11 104; M 11 122; M 31 103; M 31 103;
   M 145 111; M 31 103; M 31 103; M 144 107; M 31 103; M 31 103; M 11 91;
   M 31 113; M 11 121; M 3 119; M 3 6; M 3 6; M 11 98; M 3 6; M 11 100;
   M 144 107; M 3 6; M 11 102; M 11 124; M 144 107; M 11 125; M 11 100; M 3 6;
   M 11 125; M 11 100; M 3 6; M 3 6; M 3 6; M 3 6; M 11 102
  ].

(** Parse states 5700 to 5849. *)
Definition ts_lex_modes_5700 : list TSLexMode :=
  [
   M 11 100; M 11 100; M 11 124; M 11 102; M 3 6; M 3 6; M 3 6; M 11 124;
   M 3 6; M 3 6; M 11 100; M 11 100; M 11 125; M 11 125; M 3 6; M 11 100;
   M 11 97; M 3 6; M 3 6; M 11 124; M 11 97; M 11 124; M 3 6; M 145 69;
   M 11 125; M 3 6; M 11 98; M 11 125; M 11 105; M 11 125; M 11 125; M 3 6;
   M 3 6; M 11 124; M 3 6; M 3 6; M 3 6; M 11 124; M 3 6; M 11 125; M 3 6;
   M 11 105; M 3 6; M 11 105; M 3 6; M 11 124; M 11 102; M 11 105; M 11 102;
   M 11 124; M 3 6; M 3 6; M 11 126; M 11 125; M 11 98; M 11 105; M 11 105;
   M 11 98; M 11 102; M 11 98; M 11 102; M 11 102; M 11 100; M 3 6; M 3 6;
   M 11 126; M 3 6; M 3 6; M 11 126; M 11 98; M 144 107; M 6 13; M 3 127;
   M 11 97; M 11 126; M 144 107; M 11 105; M 11 126; M 11 98; M 11 124;
   M 11 126; M 11 98; M 11 97; M 11 97; M 3 6; M 11 97; M 11 97; M 3 6; M 3 6;
   M 3 6; M 11 126; M 11 126; M 3 6; M 3 6; M 11 105; M 3 6; M 11 97; M 3 6;
   M 11 102; M 11 105; M 3 6; M 11 126; M 11 98; M 11 126; M 3 6; M 11 98;
   M 11 105; M 145 69; M 11 97; M 3 6; M 11 102; M 11 100; M 11 97; M 3 6;
   M 1 128; M 1 128; M 11 129; M 1 128; M 1 128; M 1 128; M 11 103; M 1 128;
   M 11 129; M 1 128; M 1 128; M 1 128; M 11 103; M 11 103; M 11 103;
   M 11 103; M 1 128; M 1 128; M 1 128; M 1 128; M 11 130; M 11 103; M 1 128;
   M 11 130; M 1 128; M 1 128; M 1 128; M 1 128; M 11 130; M 11 103; M 1 128;
   M 1 128; M 1 128; M 1 128; M 1 128; M 1 128
  ].

(** Parse states 5850 to 5999. *)
Definition ts_lex_modes_5850 : list TSLexMode :=
  [
   M 11 130; M 1 128; M 6 11; M 11 103; M 11 130; M 1 128; M 1 128; M 1 128;
   M 1 128; M 1 128; M 11 130; M 1 128; M 1 128; M 11 130; M 1 128; M 1 128;
   M 1 128; M 11 103; M 11 130; M 1 128; M 11 103; M 1 128; M 1 128; M 1 128;
   M 11 130; M 1 128; M 11 130; M 1 128; M 3 131; M 11 103; M 1 15; M 11 103;
   M 1 15; M 1 15; M 1 15; M 3 131; M 1 15; M 1 15; M 1 15; M 3 131; M 1 15;
   M 11 103; M 3 131; M 3 131; M 1 15; M 11 103; M 11 103; M 3 131; M 1 15;
   M 1 15; M 1 15; M 6 17; M 3 131; M 11 103; M 3 131; M 1 15; M 1 15; M 6 13;
   M 3 131; M 11 103; M 3 131; M 1 15; M 3 131; M 1 15; M 1 15; M 3 131;
   M 1 15; M 11 103; M 1 15; M 11 103; M 3 131; M 3 131; M 11 103; M 1 15;
   M 11 103; M 1 15; M 1 15; M 11 103; M 1 15; M 1 15; M 1 15; M 1 15; M 1 15;
   M 3 131; M 1 15; M 3 131; M 1 15; M 11 103; M 11 103; M 3 131; M 3 131;
   M 11 103; M 11 103; M 11 103; M 1 15; M 11 103; M 1 15; M 1 15; M 11 103;
   M 11 103; M 11 103; M 3 131; M 3 131; M 3 131; M 6 16; M 3 131; M 3 131;
   M 11 103; M 3 131; M 15 132; M 11 103; M 11 103; M 3 131; M 1 15; M 1 15;
   M 3 131; M 1 15; M 11 103; M 1 15; M 1 15; M 3 131; M 3 131; M 1 15;
   M 11 103; M 11 103; M 11 103; M 15 132; M 11 103; M 3 131; M 1 15; M 3 131;
   M 3 131; M 3 131; M 1 15; M 1 15; M 1 15; M 3 131; M 3 131; M 3 131;
   M 3 131; M 3 131; M 1 15; M 1 15; M 3 131; M 3 131; M 3 131; M 3 131;
   M 11 103; M 11 103; M 1 15
  ].

(** Parse states 6000 to 6149. *)
Definition ts_lex_modes_6000 : list TSLexMode :=
  [
   M 11 103; M 11 103; M 1 15; M 3 7; M 3 133; M 144 103; M 3 7; M 3 7;
   M 3 134; M 3 134; M 3 7; M 3 7; M 3 134; M 3 134; M 3 134; M 3 134;
   M 3 134; M 3 134; M 3 134; M 3 134; M 3 134; M 3 7; M 3 134; M 3 134;
   M 3 134; M 3 133; M 3 134; M 3 134; M 3 7; M 3 134; M 3 134; M 3 134;
   M 3 134; M 3 134; M 3 134; M 3 134; M 3 134; M 3 7; M 3 7; M 3 7; M 3 134;
   M 3 134; M 3 134; M 3 134; M 3 134; M 3 134; M 3 134; M 3 133; M 3 134;
   M 3 134; M 3 134; M 3 7; M 3 134; M 3 134; M 3 7; M 3 134; M 3 7; M 3 7;
   M 3 134; M 3 7; M 3 7; M 3 7; M 3 7; M 144 103; M 3 7; M 3 7; M 15 135;
   M 3 133; M 3 133; M 15 135; M 3 133; M 3 7; M 3 7; M 3 133; M 3 133; M 3 7;
   M 3 133; M 3 7; M 3 7; M 3 7; M 3 7; M 3 7; M 3 7; M 3 133; M 3 133; M 3 7;
   M 3 133; M 3 133; M 3 133; M 3 133; M 3 133; M 3 133; M 3 7; M 3 133;
   M 3 133; M 3 133; M 3 133; M 3 133; M 3 133; M 3 133; M 3 133; M 3 133;
   M 3 7; M 3 133; M 3 133; M 3 133; M 3 133; M 3 133; M 3 133; M 3 133;
   M 3 133; M 3 133; M 3 133; M 3 133; M 6 18; M 3 7; M 3 7; M 6 20; M 3 7;
   M 3 7; M 3 7; M 3 134; M 3 7; M 3 7; M 3 133; M 3 134; M 3 7; M 6 19;
   M 3 133; M 3 7; M 3 7; M 3 7; M 3 134; M 3 7; M 3 7; M 3 7; M 3 133;
   M 3 133; M 3 8; M 3 8; M 3 136; M 3 8; M 3 10; M 3 10; M 3 10; M 3 8;
   M 3 10; M 3 10; M 3 136; M 3 136
  ].

(** Parse states 6150 to 6299. *)
Definition ts_lex_modes_6150 : list TSLexMode :=
  [
   M 144 137; M 3 8; M 3 136; M 3 8; M 3 8; M 3 10; M 3 10; M 3 136; M 3 8;
   M 3 10; M 3 136; M 3 8; M 3 8; M 3 10; M 3 10; M 3 136; M 3 10; M 3 128;
   M 3 136; M 3 8; M 144 137; M 3 136; M 3 10; M 3 136; M 3 10; M 3 10;
   M 3 136; M 3 10; M 14 138; M 3 10; M 14 138; M 3 8; M 6 16; M 3 136;
   M 3 10; M 3 10; M 3 10; M 6 22; M 3 8; M 3 8; M 3 136; M 144 137; M 3 136;
   M 3 136; M 3 8; M 3 10; M 3 10; M 3 10; M 3 136; M 3 10; M 3 136;
   M 144 139; M 3 128; M 3 10; M 3 136; M 3 8; M 3 136; M 3 10; M 3 10; M 3 8;
   M 3 128; M 3 136; M 3 128; M 3 10; M 3 128; M 3 128; M 3 128; M 3 10;
   M 3 10; M 3 136; M 3 128; M 3 10; M 3 128; M 3 10; M 3 136; M 3 10;
   M 3 128; M 3 10; M 3 128; M 3 128; M 3 10; M 3 8; M 3 10; M 3 10; M 3 136;
   M 3 128; M 3 128; M 3 8; M 3 10; M 144 137; M 3 128; M 3 128; M 3 128;
   M 3 128; M 3 128; M 3 136; M 3 128; M 3 136; M 14 140; M 144 139; M 3 8;
   M 3 136; M 3 136; M 3 128; M 3 128; M 3 128; M 3 128; M 6 24; M 3 136;
   M 3 128; M 14 140; M 3 128; M 3 128; M 3 128; M 3 136; M 3 128; M 3 128;
   M 3 128; M 3 136; M 3 128; M 3 128; M 3 136; M 3 128; M 3 8; M 3 128;
   M 3 136; M 3 128; M 3 128; M 3 128; M 3 136; M 3 10; M 3 136; M 3 8;
   M 3 136; M 3 136; M 3 10; M 3 136; M 3 136; M 3 8; M 3 8; M 6 17; M 3 8;
   M 3 136; M 144 137; M 3 136; M 3 8; M 3 136; M 3 10; M 3 8; M 3 136
  ].

(** Parse states 6300 to 6449. *)
Definition ts_lex_modes_6300 : list TSLexMode :=
  [
   M 3 8; M 3 136; M 3 8; M 3 8; M 3 136; M 3 8; M 3 136; M 3 8; M 3 10;
   M 3 10; M 144 137; M 3 136; M 3 8; M 6 23; M 144 139; M 3 136; M 3 8;
   M 144 137; M 3 8; M 3 8; M 3 8; M 3 8; M 3 8; M 3 136; M 3 8; M 3 136;
   M 3 8; M 3 10; M 6 17; M 6 17; M 3 8; M 3 128; M 3 8; M 3 10; M 3 10;
   M 3 136; M 144 137; M 3 136; M 3 128; M 3 8; M 3 8; M 3 8; M 3 10; M 3 128;
   M 3 15; M 3 15; M 3 15; M 3 15; M 3 15; M 3 15; M 144 107; M 144 136;
   M 144 136; M 3 15; M 144 107; M 6 18; M 3 15; M 6 18; M 144 136; M 144 136;
   M 6 18; M 3 15; M 6 18; M 144 136; M 3 15; M 3 15; M 3 15; M 144 136;
   M 6 18; M 3 15; M 144 136; M 144 136; M 6 18; M 3 15; M 6 27; M 6 18;
   M 3 15; M 144 136; M 3 15; M 3 15; M 6 18; M 15 132; M 3 15; M 6 18;
   M 6 18; M 3 15; M 6 18; M 144 136; M 15 141; M 6 18; M 6 18; M 3 15;
   M 3 15; M 6 18; M 6 20; M 15 141; M 3 15; M 6 18; M 6 18; M 144 136;
   M 144 107; M 6 18; M 6 18; M 3 15; M 144 136; M 6 18; M 6 18; M 6 18;
   M 6 18; M 3 15; M 6 18; M 6 18; M 6 18; M 3 15; M 3 15; M 6 18; M 15 142;
   M 3 15; M 15 142; M 3 15; M 3 15; M 144 107; M 3 15; M 3 15; M 3 15;
   M 3 15; M 144 136; M 6 18; M 3 15; M 3 15; M 6 18; M 3 15; M 144 136;
   M 144 107; M 6 18; M 6 18; M 3 15; M 3 15; M 6 19; M 3 15; M 6 18; M 6 18;
   M 6 18; M 3 15; M 144 136; M 6 18; M 6 18; M 6 18; M 6 18; M 6 18
  ].

(** Parse states 6450 to 6599. *)
Definition ts_lex_modes_6450 : list TSLexMode :=
  [
   M 6 18; M 3 15; M 3 15; M 144 107; M 6 18; M 6 18; M 144 107; M 6 18;
   M 144 107; M 3 15; M 144 136; M 6 23; M 144 136; M 6 23; M 144 136; M 6 22;
   M 144 136; M 6 22; M 6 23; M 144 136; M 6 23; M 6 23; M 6 22; M 6 22;
   M 6 22; M 6 23; M 6 23; M 6 22; M 144 136; M 14 143; M 6 24; M 14 143;
   M 144 136; M 144 136; M 6 22; M 144 136; M 144 136; M 6 22; M 144 136;
   M 6 23; M 6 22; M 6 22; M 6 22; M 144 136; M 6 23; M 6 23; M 144 144;
   M 6 22; M 6 22; M 6 22; M 6 23; M 6 22; M 6 22; M 6 22; M 144 136;
   M 144 136; M 6 22; M 6 23; M 6 23; M 6 23; M 144 136; M 15 145; M 6 22;
   M 144 136; M 6 23; M 6 23; M 6 22; M 6 23; M 144 136; M 6 22; M 6 22;
   M 144 136; M 6 23; M 6 22; M 6 22; M 6 22; M 6 22; M 144 136; M 144 136;
   M 6 23; M 6 22; M 6 22; M 6 22; M 144 136; M 15 146; M 144 136; M 144 136;
   M 6 22; M 144 136; M 6 22; M 144 136; M 15 147; M 144 136; M 144 136;
   M 6 23; M 144 136; M 144 136; M 144 136; M 144 136; M 6 23; M 6 22;
   M 144 136; M 6 22; M 6 23; M 144 136; M 144 136; M 144 136; M 144 136;
   M 144 136; M 6 22; M 144 136; M 15 135; M 6 22; M 144 136; M 144 136;
   M 144 136; M 6 23; M 6 23; M 144 136; M 15 146; M 144 136; M 6 22; M 6 22;
   M 144 136; M 144 136; M 15 147; M 144 136; M 6 23; M 144 136; M 6 22;
   M 144 136; M 144 136; M 144 136; M 144 136; M 144 136; M 144 144;
   M 144 144; M 6 23; M 144 136; M 144 136; M 6 23; M 15 145; M 6 23; M 6 23;
   M 144 136; M 144 136; M 6 23; M 6 23; M 6 23; M 6 23
  ].

(** Parse states 6600 to 6749. *)
Definition ts_lex_modes_6600 : list TSLexMode :=
  [
   M 6 23; M 6 23; M 6 22; M 6 23; M 6 23; M 6 23; M 144 136; M 6 22; M 6 22;
   M 6 22; M 6 23; M 6 23; M 6 23; M 144 136; M 144 136; M 6 27; M 144 136;
   M 144 136; M 144 136; M 6 27; M 144 136; M 144 136; M 144 136; M 144 136;
   M 144 136; M 6 27; M 6 27; M 144 136; M 144 136; M 144 136; M 144 136;
   M 144 136; M 144 136; M 144 136; M 144 136; M 15 148; M 144 136; M 144 136;
   M 144 136; M 144 136; M 14 138; M 144 136; M 144 136; M 15 149; M 144 136;
   M 6 27; M 6 27; M 144 136; M 144 136; M 6 27; M 14 132; M 144 136; M 6 27;
   M 144 136; M 144 136; M 144 136; M 144 136; M 144 136; M 144 136;
   M 144 136; M 6 27; M 144 136; M 144 136; M 144 136; M 15 150; M 144 136;
   M 144 136; M 144 136; M 144 136; M 144 136; M 144 136; M 144 136;
   M 144 136; M 144 136; M 144 136; M 6 27; M 15 149; M 15 149; M 144 136;
   M 144 136; M 6 27; M 144 136; M 15 149; M 144 136; M 144 136; M 144 136;
   M 6 27; M 144 136; M 6 27; M 144 136; M 144 136; M 6 27; M 144 136;
   M 144 136; M 144 136; M 144 136; M 144 136; M 144 136; M 144 136; M 6 27;
   M 144 136; M 144 136; M 6 27; M 6 27; M 144 136; M 144 136; M 14 140;
   M 144 136; M 144 136; M 144 136; M 144 136; M 144 136; M 144 136;
   M 144 136; M 144 136; M 144 136; M 14 132; M 144 136; M 144 136; M 144 136;
   M 144 136; M 144 136; M 144 136; M 144 136; M 144 136; M 15 149; M 144 136;
   M 144 136; M 144 136; M 144 136; M 144 136; M 6 27; M 144 136; M 144 136;
   M 144 136; M 144 136; M 144 136; M 6 27; M 144 136; M 144 136; M 144 136;
   M 144 136; M 144 136; M 6 27; M 144 136; M 144 136; M 144 136; M 6 27;
   M 144 136; M 15 149
  ].

(** Parse states 6750 to 6899. *)
Definition ts_lex_modes_6750 : list TSLexMode :=
  [
   M 144 136; M 144 136; M 144 136; M 6 27; M 144 136; M 144 136; M 144 136;
   M 144 136; M 144 136; M 144 136; M 15 151; M 144 136; M 144 136; M 144 136;
   M 6 27; M 144 136; M 144 136; M 144 136; M 6 27; M 144 136; M 144 136;
   M 144 136; M 144 136; M 144 136; M 144 136; M 144 136; M 144 136;
   M 144 136; M 144 136; M 144 136; M 144 136; M 144 136; M 144 136;
   M 144 136; M 144 136; M 144 136; M 144 136; M 144 136; M 6 27; M 144 136;
   M 144 136; M 6 27; M 144 136; M 144 136; M 144 136; M 144 136; M 144 136;
   M 144 136; M 6 27; M 6 27; M 144 136; M 144 136; M 144 136; M 144 136;
   M 144 136; M 6 27; M 144 136; M 6 27; M 144 136; M 144 136; M 144 136;
   M 144 136; M 144 136; M 144 136; M 144 136; M 144 136; M 144 136;
   M 144 136; M 144 136; M 144 136; M 144 136; M 144 136; M 15 149; M 6 27;
   M 144 136; M 144 136; M 6 27; M 144 136; M 144 136; M 144 136; M 6 27;
   M 144 136; M 144 136; M 144 136; M 6 27; M 144 136; M 144 136; M 144 136;
   M 144 136; M 144 136; M 144 136; M 144 136; M 15 152; M 144 136; M 15 149;
   M 144 136; M 144 136; M 144 136; M 144 136; M 144 136; M 15 152; M 144 136;
   M 14 153; M 144 136; M 144 136; M 144 136; M 144 136; M 144 136; M 144 136;
   M 144 136; M 144 136; M 144 136; M 144 136; M 144 136; M 144 136;
   M 144 136; M 144 136; M 144 136; M 144 136; M 144 136; M 144 136; M 6 27;
   M 144 136; M 6 27; M 144 136; M 144 136; M 144 136; M 144 136; M 144 136;
   M 144 136; M 144 136; M 144 136; M 144 136; M 144 136; M 15 149; M 144 136;
   M 15 149; M 15 150; M 144 136; M 144 136; M 144 136; M 144 136; M 144 136;
   M 144 136; M 144 136; M 144 136; M 144 136; M 144 136; M 144 136; M 144 136
  ].

(** Parse states 6900 to 7049. *)
Definition ts_lex_modes_6900 : list TSLexMode :=
  [
   M 144 136; M 144 136; M 144 136; M 144 136; M 144 136; M 144 136;
   M 144 136; M 144 136; M 144 136; M 144 136; M 144 136; M 144 136;
   M 144 136; M 144 136; M 144 136; M 15 151; M 144 136; M 144 136; M 144 136;
   M 144 136; M 144 136; M 144 136; M 144 136; M 144 136; M 144 136;
   M 144 136; M 144 136; M 144 136; M 144 136; M 144 136; M 144 136;
   M 144 136; M 144 136; M 144 136; M 144 136; M 144 136; M 144 136; M 15 149;
   M 144 136; M 144 136; M 144 136; M 144 136; M 144 136; M 144 136;
   M 144 136; M 6 27; M 15 154; M 144 136; M 144 136; M 144 136; M 14 153;
   M 144 136; M 144 136; M 144 136; M 144 136; M 144 136; M 144 136;
   M 144 136; M 144 136; M 144 136; M 6 27; M 6 27; M 144 136; M 144 136;
   M 144 136; M 144 136; M 15 154; M 15 148; M 144 136; M 144 136; M 144 136;
   M 144 136; M 6 27; M 144 136; M 6 27; M 144 136; M 144 136; M 144 136;
   M 144 136; M 144 136; M 144 136; M 144 136; M 144 136; M 144 136;
   M 144 136; M 144 136; M 144 136; M 15 149; M 15 149; M 15 149; M 15 149;
   M 15 149; M 15 149; M 144 155; M 15 156; M 15 149; M 15 149; M 15 156;
   M 15 157; M 15 149; M 15 157; M 15 149; M 15 149; M 15 157; M 15 157;
   M 15 157; M 15 149; M 15 149; M 15 141; M 144 155; M 15 157; M 14 135;
   M 15 149; M 15 157; M 15 158; M 144 155; M 15 149; M 144 159; M 15 157;
   M 15 157; M 15 157; M 14 135; M 15 149; M 15 157; M 15 149; M 15 149;
   M 15 149; M 15 149; M 15 158; M 15 160; M 15 160; M 144 159; M 15 142;
   M 15 149; M 15 149; M 144 136; M 15 149; M 15 157; M 15 149; M 15 149;
   M 14 161; M 15 147; M 14 161; M 15 157; M 15 157; M 14 162; M 15 157;
   M 15 157; M 15 157; M 14 163
  ].

(** Parse states 7050 to 7199. *)
Definition ts_lex_modes_7050 : list TSLexMode :=
  [
   M 15 146; M 14 162; M 144 159; M 15 157; M 14 164; M 14 162; M 15 157;
   M 144 137; M 14 164; M 15 157; M 15 157; M 144 159; M 14 165; M 15 157;
   M 15 157; M 15 157; M 15 157; M 144 137; M 14 163; M 15 157; M 15 157;
   M 144 137; M 15 145; M 15 157; M 14 156; M 14 162; M 14 164; M 15 157;
   M 14 164; M 14 164; M 14 166; M 14 162; M 15 157; M 144 137; M 15 157;
   M 15 157; M 14 162; M 14 143; M 14 162; M 14 162; M 14 162; M 15 157;
   M 15 157; M 14 164; M 15 157; M 14 162; M 14 164; M 144 137; M 14 165;
   M 144 137; M 14 156; M 15 157; M 15 157; M 14 164; M 144 137; M 14 164;
   M 14 166; M 14 162; M 145 149; M 145 149; M 14 164; M 14 164; M 14 164;
   M 14 164; M 14 164; M 14 164; M 14 164; M 14 164; M 14 164; M 14 164;
   M 14 164; M 14 164; M 14 164; M 14 164; M 14 164; M 14 164; M 14 164;
   M 14 164; M 14 164; M 14 164; M 14 164; M 14 164; M 14 164; M 15 167;
   M 14 164; M 14 164; M 15 168; M 15 168; M 15 167; M 15 148; M 15 167;
   M 15 167; M 15 167; M 15 167; M 14 164; M 15 167; M 15 167; M 15 167;
   M 14 164; M 15 169; M 15 167; M 15 170; M 15 170; M 15 169; M 15 169;
   M 15 169; M 15 169; M 15 169; M 15 169; M 15 169; M 15 169; M 14 171;
   M 14 171; M 15 169; M 14 153; M 15 151; M 14 172; M 14 164; M 15 154;
   M 14 141; M 14 141; M 14 162; M 14 162; M 14 162; M 14 162; M 14 162;
   M 14 162; M 14 162; M 14 162; M 14 162; M 14 162; M 14 162; M 14 162;
   M 14 162; M 14 162; M 14 162; M 14 162; M 14 162; M 14 162; M 14 162;
   M 14 162; M 14 162; M 14 162; M 14 142; M 14 142; M 14 162; M 14 162;
   M 14 132; M 15 167; M 145 149
  ].

(** Parse states 7200 to 7349. *)
Definition ts_lex_modes_7200 : list TSLexMode :=
  [
   M 15 169; M 16 156; M 16 156; M 14 173; M 14 173; M 15 150; M 145 149;
   M 14 174; M 14 174; M 145 149; M 14 164; M 14 164; M 14 164; M 14 164;
   M 14 164; M 14 164; M 14 164; M 14 175; M 14 175; M 14 176; M 14 176;
   M 145 149; M 14 164; M 14 172; M 144 107; M 15 177; M 15 177; M 15 169;
   M 15 169; M 15 169; M 15 169; M 15 169; M 15 169; M 15 169; M 15 169;
   M 15 169; M 15 169; M 15 169; M 15 169; M 15 169; M 15 169; M 15 169;
   M 15 169; M 15 169; M 15 169; M 15 169; M 15 169; M 15 169; M 15 169;
   M 15 167; M 15 169; M 15 167; M 15 167; M 15 169; M 15 169; M 15 177;
   M 15 167; M 14 178; M 14 178; M 15 179; M 14 146; M 14 146; M 15 167;
   M 15 167; M 15 179; M 14 135; M 14 180; M 15 167; M 15 156; M 14 181;
   M 14 181; M 14 180; M 15 167; M 14 180; M 14 180; M 14 180; M 14 180;
   M 14 180; M 14 180; M 14 180; M 14 145; M 15 167; M 15 167; M 15 182;
   M 14 145; M 15 167; M 14 183; M 15 167; M 15 167; M 15 167; M 15 167;
   M 15 167; M 15 167; M 15 167; M 15 167; M 15 167; M 15 177; M 15 167;
   M 14 147; M 15 167; M 14 184; M 14 184; M 14 180; M 15 167; M 18 174;
   M 18 174; M 14 183; M 15 185; M 15 185; M 15 179; M 15 179; M 15 179;
   M 15 179; M 15 179; M 15 179; M 15 179; M 15 179; M 15 179; M 15 179;
   M 15 177; M 15 167; M 18 156; M 15 177; M 18 156; M 15 186; M 15 186;
   M 15 177; M 145 157; M 14 187; M 14 187; M 14 147; M 15 177; M 15 177;
   M 15 177; M 145 157; M 145 157; M 15 188; M 144 107; M 15 188; M 15 189;
   M 15 189; M 15 188; M 144 107; M 15 188; M 15 188; M 15 188; M 15 188;
   M 15 188; M 15 188; M 15 188
  ].

(** Parse states 7350 to 7499. *)
Definition ts_lex_modes_7350 : list TSLexMode :=
  [
   M 15 177; M 15 158; M 15 188; M 15 167; M 144 190; M 14 191; M 15 177;
   M 14 180; M 15 192; M 14 180; M 14 180; M 14 180; M 14 180; M 15 192;
   M 14 180; M 14 180; M 14 180; M 14 180; M 14 180; M 14 180; M 14 180;
   M 14 193; M 14 193; M 14 191; M 14 191; M 14 191; M 14 149; M 15 192;
   M 15 192; M 14 191; M 14 180; M 15 192; M 14 191; M 15 194; M 15 195;
   M 15 192; M 14 191; M 14 180; M 14 191; M 15 195; M 14 191; M 15 194;
   M 144 190; M 14 154; M 14 154; M 144 190; M 14 191; M 12 164; M 15 177;
   M 14 152; M 14 152; M 14 149; M 15 192; M 15 196; M 144 197; M 15 198;
   M 14 149; M 14 149; M 14 149; M 14 149; M 14 149; M 14 149; M 14 149;
   M 14 163; M 15 192; M 15 199; M 14 180; M 15 199; M 15 177; M 144 197;
   M 14 149; M 15 200; M 15 194; M 14 151; M 15 200; M 15 198; M 15 179;
   M 15 179; M 15 179; M 15 179; M 15 201; M 15 179; M 15 196; M 15 179;
   M 14 148; M 12 164; M 15 179; M 15 179; M 15 179; M 15 179; M 15 179;
   M 15 196; M 15 198; M 15 198; M 15 198; M 15 179; M 15 198; M 15 198;
   M 15 179; M 15 179; M 15 192; M 15 179; M 15 179; M 15 198; M 15 179;
   M 15 179; M 15 179; M 15 179; M 15 179; M 15 179; M 15 194; M 15 194;
   M 15 194; M 15 179; M 15 192; M 15 198; M 15 177; M 14 158; M 14 158;
   M 15 179; M 15 179; M 15 194; M 15 194; M 15 201; M 15 177; M 144 197;
   M 15 194; M 14 202; M 15 194; M 15 194; M 14 202; M 14 165; M 15 196;
   M 15 196; M 15 196; M 15 196; M 15 177; M 15 177; M 15 196; M 15 196;
   M 14 150; M 14 150; M 15 177; M 15 198; M 15 177; M 15 177; M 15 177;
   M 15 177; M 15 177; M 15 177
  ].

(** Parse states 7500 to 7649. *)
Definition ts_lex_modes_7500 : list TSLexMode :=
  [
   M 15 177; M 15 192; M 12 162; M 12 162; M 15 177; M 15 196; M 15 177;
   M 15 177; M 14 203; M 15 177; M 14 203; M 15 196; M 15 177; M 15 177;
   M 15 177; M 15 177; M 14 180; M 14 204; M 15 188; M 15 188; M 15 188;
   M 15 188; M 15 188; M 14 180; M 14 204; M 15 188; M 15 188; M 15 188;
   M 15 188; M 15 188; M 14 180; M 14 180; M 14 180; M 15 196; M 15 188;
   M 14 180; M 15 188; M 15 188; M 15 188; M 15 188; M 14 180; M 15 188;
   M 15 188; M 15 188; M 14 156; M 15 188; M 15 188; M 15 188; M 14 151;
   M 15 188; M 14 180; M 14 180; M 15 188; M 14 180; M 15 188; M 15 177;
   M 14 148; M 15 188; M 15 177; M 15 194; M 14 176; M 14 157; M 15 194;
   M 15 194; M 14 160; M 14 160; M 14 157; M 14 157; M 14 157; M 14 157;
   M 15 196; M 14 157; M 14 157; M 14 157; M 14 157; M 15 198; M 15 198;
   M 15 198; M 15 198; M 15 196; M 15 198; M 15 196; M 15 196; M 15 198;
   M 15 198; M 15 198; M 15 198; M 15 198; M 15 198; M 15 198; M 15 196;
   M 15 198; M 15 198; M 15 198; M 15 198; M 15 198; M 15 198; M 15 198;
   M 15 198; M 15 198; M 15 198; M 14 172; M 15 196; M 15 198; M 15 198;
   M 15 196; M 14 157; M 15 196; M 15 196; M 15 196; M 15 196; M 15 196;
   M 15 198; M 15 205; M 15 205; M 15 194; M 15 196; M 15 196; M 15 196;
   M 15 196; M 15 192; M 15 196; M 15 196; M 15 196; M 15 182; M 12 164;
   M 15 192; M 15 192; M 15 196; M 15 196; M 15 192; M 15 192; M 14 141;
   M 15 196; M 15 192; M 15 192; M 15 192; M 15 192; M 12 164; M 15 192;
   M 12 164; M 12 164; M 15 194; M 15 194; M 15 194; M 15 192; M 15 194;
   M 12 164; M 15 192; M 15 192
  ].

(** Parse states 7650 to 7799. *)
Definition ts_lex_modes_7650 : list TSLexMode :=
  [
   M 15 192; M 12 164; M 15 192; M 15 192; M 15 192; M 15 192; M 15 192;
   M 15 192; M 15 192; M 15 192; M 15 192; M 15 196; M 14 149; M 14 149;
   M 14 149; M 14 149; M 14 142; M 14 149; M 14 149; M 15 194; M 14 149;
   M 14 149; M 14 149; M 14 149; M 15 192; M 15 194; M 14 149; M 14 149;
   M 14 149; M 14 149; M 145 169; M 14 171; M 14 149; M 14 149; M 14 149;
   M 14 149; M 14 149; M 14 149; M 14 149; M 14 149; M 14 149; M 15 194;
   M 15 192; M 14 191; M 14 149; M 15 182; M 15 182; M 15 182; M 15 182;
   M 15 182; M 14 191; M 15 182; M 15 194; M 14 191; M 14 191; M 14 191;
   M 14 191; M 14 191; M 14 191; M 14 191; M 14 191; M 15 182; M 15 196;
   M 14 191; M 14 191; M 14 191; M 14 191; M 14 191; M 14 191; M 14 191;
   M 14 191; M 15 196; M 15 182; M 14 191; M 14 191; M 15 182; M 14 191;
   M 14 191; M 15 194; M 14 191; M 15 194; M 15 194; M 14 191; M 15 194;
   M 14 191; M 145 169; M 16 156; M 15 194; M 15 182; M 145 167; M 15 194;
   M 15 194; M 15 194; M 14 173; M 15 194; M 15 182; M 145 169; M 14 174;
   M 15 194; M 145 169; M 14 175; M 12 164; M 145 169; M 145 169; M 15 206;
   M 15 207; M 15 207; M 15 206; M 144 107; M 15 206; M 15 206; M 15 206;
   M 15 206; M 15 206; M 12 164; M 15 182; M 15 206; M 15 206; M 145 167;
   M 14 208; M 15 194; M 145 167; M 15 194; M 14 208; M 145 167; M 15 194;
   M 15 206; M 15 194; M 14 149; M 15 206; M 15 182; M 14 209; M 14 209;
   M 145 188; M 145 188; M 145 177; M 14 182; M 15 182; M 15 182; M 14 182;
   M 15 182; M 15 182; M 14 157; M 12 180; M 14 147; M 14 209; M 14 209;
   M 15 182; M 14 209; M 15 182
  ].

(** Parse states 7800 to 7949. *)
Definition ts_lex_modes_7800 : list TSLexMode :=
  [
   M 15 182; M 14 157; M 15 182; M 14 209; M 15 182; M 14 182; M 14 157;
   M 14 157; M 14 157; M 14 210; M 14 157; M 14 210; M 12 211; M 14 212;
   M 14 157; M 145 188; M 15 182; M 15 182; M 14 213; M 14 157; M 15 182;
   M 14 213; M 14 210; M 14 157; M 14 157; M 14 157; M 14 157; M 15 182;
   M 14 157; M 14 157; M 14 209; M 15 182; M 14 184; M 145 177; M 14 157;
   M 14 157; M 145 179; M 145 179; M 15 182; M 14 157; M 15 182; M 15 182;
   M 14 145; M 14 210; M 15 182; M 14 210; M 12 180; M 14 187; M 14 210;
   M 15 182; M 145 177; M 14 210; M 18 174; M 14 210; M 14 210; M 18 156;
   M 14 146; M 15 182; M 15 182; M 14 178; M 145 188; M 145 188; M 14 157;
   M 14 182; M 145 188; M 14 157; M 15 206; M 15 206; M 15 206; M 15 206;
   M 15 206; M 15 182; M 15 206; M 15 206; M 15 206; M 14 205; M 15 206;
   M 15 206; M 14 157; M 145 179; M 14 157; M 14 205; M 14 157; M 15 206;
   M 12 211; M 15 206; M 15 206; M 15 206; M 15 182; M 145 177; M 15 206;
   M 145 188; M 15 206; M 15 206; M 15 206; M 14 209; M 15 206; M 15 206;
   M 144 107; M 15 206; M 14 157; M 15 206; M 14 157; M 14 157; M 144 107;
   M 144 107; M 15 206; M 14 209; M 14 209; M 15 206; M 14 182; M 14 182;
   M 14 182; M 144 107; M 144 107; M 14 182; M 145 188; M 14 183; M 14 182;
   M 145 177; M 15 182; M 145 177; M 14 212; M 14 182; M 14 210; M 145 192;
   M 14 182; M 144 197; M 144 190; M 14 182; M 144 190; M 14 182; M 14 209;
   M 144 197; M 14 167; M 14 167; M 14 167; M 14 167; M 14 214; M 14 167;
   M 14 182; M 14 182; M 14 182; M 14 167; M 14 167; M 14 209; M 12 149;
   M 14 169; M 145 192; M 14 214
  ].

(** Parse states 7950 to 8099. *)
Definition ts_lex_modes_7950 : list TSLexMode :=
  [
   M 14 209; M 14 214; M 144 197; M 14 209; M 14 170; M 14 209; M 14 170;
   M 14 169; M 14 182; M 14 182; M 14 209; M 16 182; M 144 197; M 12 149;
   M 14 169; M 14 169; M 14 169; M 145 192; M 14 169; M 145 192; M 144 190;
   M 144 190; M 12 149; M 14 169; M 14 182; M 14 169; M 14 169; M 145 194;
   M 145 192; M 145 192; M 14 209; M 14 215; M 145 198; M 14 214; M 145 192;
   M 145 192; M 145 198; M 14 215; M 14 214; M 145 192; M 16 182; M 14 158;
   M 14 167; M 145 192; M 145 192; M 14 209; M 14 214; M 145 192; M 145 192;
   M 145 192; M 145 192; M 145 192; M 145 192; M 14 214; M 16 205; M 16 205;
   M 14 216; M 14 210; M 145 192; M 14 210; M 14 210; M 16 182; M 16 182;
   M 16 182; M 16 182; M 16 182; M 16 182; M 16 182; M 14 167; M 145 194;
   M 145 192; M 14 210; M 14 217; M 14 202; M 14 154; M 14 209; M 14 210;
   M 14 209; M 145 196; M 145 196; M 14 218; M 14 218; M 145 192; M 14 217;
   M 14 182; M 14 209; M 14 210; M 12 149; M 12 149; M 14 217; M 14 217;
   M 14 217; M 14 217; M 14 217; M 145 192; M 14 209; M 14 217; M 14 210;
   M 14 217; M 14 210; M 14 219; M 14 219; M 14 210; M 14 210; M 14 217;
   M 14 214; M 14 216; M 14 209; M 145 192; M 14 220; M 14 210; M 145 192;
   M 12 149; M 145 192; M 12 149; M 12 149; M 14 216; M 14 216; M 14 216;
   M 14 216; M 14 216; M 14 216; M 14 221; M 14 221; M 14 220; M 14 222;
   M 14 150; M 14 210; M 14 220; M 14 220; M 14 220; M 14 220; M 14 220;
   M 14 220; M 14 216; M 14 210; M 14 220; M 14 210; M 14 210; M 14 210;
   M 14 210; M 14 210; M 14 223; M 14 223; M 145 192; M 14 222; M 14 210;
   M 14 210; M 14 222; M 14 222
  ].

(** Parse states 8100 to 8249. *)
Definition ts_lex_modes_8100 : list TSLexMode :=
  [
   M 14 222; M 14 222; M 14 182; M 14 222; M 14 222; M 14 210; M 14 210;
   M 14 222; M 14 169; M 14 210; M 14 220; M 14 214; M 145 192; M 14 216;
   M 145 192; M 14 182; M 14 224; M 14 203; M 14 148; M 14 214; M 14 209;
   M 14 182; M 14 210; M 14 182; M 14 209; M 14 182; M 14 182; M 14 182;
   M 145 196; M 14 182; M 14 209; M 14 209; M 14 209; M 14 209; M 145 192;
   M 14 209; M 14 209; M 144 190; M 145 192; M 14 182; M 145 192; M 14 182;
   M 14 210; M 14 209; M 145 194; M 14 204; M 14 209; M 14 224; M 14 225;
   M 14 225; M 14 224; M 14 209; M 14 182; M 144 197; M 14 209; M 14 182;
   M 14 224; M 14 182; M 12 191; M 14 224; M 14 224; M 14 224; M 14 182;
   M 14 224; M 14 151; M 145 192; M 14 182; M 14 168; M 14 168; M 14 224;
   M 14 167; M 14 224; M 14 182; M 145 192; M 14 214; M 14 214; M 14 188;
   M 14 169; M 14 226; M 145 206; M 14 169; M 18 216; M 32 227; M 14 169;
   M 14 169; M 16 182; M 145 206; M 16 182; M 16 182; M 145 206; M 14 169;
   M 145 206; M 14 167; M 145 206; M 14 167; M 145 206; M 14 167; M 14 167;
   M 14 167; M 14 186; M 14 217; M 14 186; M 14 217; M 14 217; M 14 217;
   M 14 228; M 14 217; M 14 177; M 145 206; M 14 217; M 145 182; M 14 169;
   M 14 217; M 14 217; M 145 206; M 14 217; M 14 217; M 14 217; M 14 214;
   M 14 226; M 145 182; M 14 167; M 144 127; M 14 217; M 14 169; M 145 206;
   M 14 217; M 14 217; M 12 211; M 14 169; M 14 217; M 14 167; M 14 217;
   M 14 169; M 14 217; M 14 217; M 14 217; M 145 206; M 14 214; M 14 169;
   M 14 217; M 14 217; M 14 217; M 144 127; M 145 206; M 14 217; M 14 167;
   M 144 229; M 14 230; M 14 230
  ].

(** Parse states 8250 to 8399. *)
Definition ts_lex_modes_8250 : list TSLexMode :=
  [
   M 145 206; M 14 169; M 14 228; M 14 177; M 145 206; M 14 169; M 14 169;
   M 145 206; M 14 216; M 14 217; M 14 169; M 144 229; M 14 228; M 145 206;
   M 14 228; M 14 228; M 14 228; M 14 169; M 14 228; M 14 217; M 14 169;
   M 14 216; M 14 216; M 14 228; M 14 216; M 14 169; M 32 227; M 14 214;
   M 14 216; M 14 226; M 14 226; M 14 228; M 144 229; M 18 219; M 14 214;
   M 18 219; M 14 167; M 18 216; M 14 231; M 12 157; M 32 227; M 14 231;
   M 14 228; M 14 216; M 32 227; M 14 216; M 14 216; M 14 167; M 145 182;
   M 14 232; M 14 216; M 14 216; M 14 179; M 14 177; M 14 233; M 14 233;
   M 14 216; M 14 214; M 14 177; M 14 216; M 14 234; M 145 206; M 14 224;
   M 14 214; M 14 214; M 14 220; M 14 220; M 14 220; M 14 177; M 14 220;
   M 14 226; M 14 220; M 12 211; M 14 188; M 12 211; M 14 216; M 14 220;
   M 14 216; M 14 220; M 14 220; M 14 220; M 14 220; M 14 214; M 14 234;
   M 14 234; M 14 234; M 14 220; M 145 182; M 14 167; M 14 216; M 14 220;
   M 14 220; M 18 216; M 14 220; M 14 220; M 14 167; M 14 220; M 14 220;
   M 14 220; M 145 206; M 14 216; M 14 234; M 14 220; M 14 216; M 14 220;
   M 14 216; M 14 216; M 14 220; M 14 220; M 14 177; M 14 167; M 145 206;
   M 14 177; M 14 169; M 18 216; M 14 234; M 145 182; M 14 182; M 12 211;
   M 14 232; M 14 232; M 12 211; M 14 167; M 14 234; M 14 220; M 14 167;
   M 14 222; M 14 222; M 14 222; M 14 222; M 18 216; M 14 222; M 14 232;
   M 14 220; M 14 222; M 14 222; M 14 222; M 14 222; M 14 222; M 14 232;
   M 145 206; M 145 206; M 14 234; M 14 177; M 14 222; M 14 232; M 144 235;
   M 14 220; M 18 216; M 12 211
  ].

(** Parse states 8400 to 8549. *)
Definition ts_lex_modes_8400 : list TSLexMode :=
  [
   M 14 222; M 14 222; M 12 211; M 14 222; M 14 222; M 14 177; M 14 222;
   M 14 222; M 14 222; M 145 182; M 14 224; M 14 222; M 14 222; M 14 169;
   M 14 222; M 145 206; M 14 167; M 14 216; M 12 211; M 14 232; M 14 222;
   M 145 206; M 14 216; M 18 216; M 18 216; M 14 222; M 14 216; M 145 206;
   M 14 167; M 14 222; M 14 167; M 145 206; M 18 216; M 18 216; M 18 205;
   M 145 206; M 14 216; M 14 169; M 14 222; M 145 206; M 14 189; M 14 189;
   M 18 205; M 18 182; M 145 182; M 14 169; M 14 188; M 14 214; M 18 182;
   M 145 206; M 145 182; M 14 214; M 18 182; M 145 206; M 14 182; M 14 169;
   M 12 182; M 14 169; M 14 234; M 14 232; M 18 182; M 18 182; M 18 182;
   M 18 182; M 14 182; M 18 182; M 16 182; M 145 206; M 145 206; M 14 214;
   M 144 235; M 14 232; M 16 182; M 12 211; M 18 182; M 145 206; M 14 226;
   M 16 182; M 18 182; M 16 182; M 16 182; M 14 224; M 14 169; M 14 214;
   M 16 182; M 14 214; M 16 182; M 16 182; M 145 206; M 16 182; M 14 214;
   M 14 214; M 14 188; M 144 127; M 14 188; M 14 188; M 14 188; M 145 206;
   M 16 182; M 14 214; M 16 182; M 14 188; M 14 232; M 16 182; M 14 188;
   M 16 182; M 14 226; M 14 188; M 14 167; M 12 157; M 14 214; M 14 226;
   M 14 214; M 16 182; M 14 214; M 14 214; M 14 236; M 145 206; M 14 224;
   M 14 224; M 14 224; M 16 182; M 14 224; M 14 214; M 14 224; M 14 224;
   M 14 226; M 14 224; M 14 224; M 16 182; M 14 167; M 14 224; M 14 224;
   M 16 182; M 16 182; M 14 167; M 14 208; M 145 206; M 16 182; M 16 182;
   M 14 224; M 14 234; M 14 236; M 16 182; M 145 182; M 14 224; M 14 224;
   M 16 182; M 144 235; M 14 182
  ].

(** Parse states 8550 to 8699. *)
Definition ts_lex_modes_8550 : list TSLexMode :=
  [
   M 14 214; M 16 182; M 14 224; M 145 206; M 16 182; M 14 224; M 145 182;
   M 16 182; M 14 216; M 14 224; M 14 224; M 14 224; M 14 179; M 14 224;
   M 14 169; M 14 224; M 14 179; M 14 224; M 14 224; M 12 182; M 14 182;
   M 14 182; M 14 182; M 14 182; M 14 182; M 12 157; M 14 214; M 145 206;
   M 14 226; M 14 167; M 14 216; M 14 167; M 14 185; M 14 185; M 14 179;
   M 14 182; M 14 182; M 14 182; M 14 167; M 14 179; M 14 179; M 14 179;
   M 12 157; M 14 179; M 14 167; M 14 179; M 12 157; M 14 179; M 14 177;
   M 14 222; M 14 206; M 18 216; M 14 226; M 14 188; M 14 188; M 14 182;
   M 14 182; M 14 182; M 5 237; M 14 182; M 5 237; M 5 237; M 5 237; M 14 182;
   M 14 226; M 14 226; M 14 182; M 14 182; M 14 226; M 14 226; M 14 226;
   M 14 182; M 14 179; M 14 182; M 5 237; M 14 182; M 5 237; M 5 237; M 5 237;
   M 14 182; M 14 188; M 14 182; M 14 182; M 5 237; M 14 182; M 5 237;
   M 5 237; M 5 237; M 14 182; M 14 201; M 14 182; M 14 182; M 5 237;
   M 14 226; M 14 201; M 14 182; M 5 237; M 5 237; M 14 182; M 14 192;
   M 14 207; M 14 182; M 14 207; M 14 182; M 12 209; M 14 182; M 5 237;
   M 14 182; M 14 182; M 14 182; M 14 182; M 14 192; M 14 182; M 14 182;
   M 14 179; M 14 238; M 32 227; M 145 182; M 145 182; M 18 182; M 18 182;
   M 18 182; M 12 210; M 18 182; M 14 198; M 14 239; M 14 226; M 14 239;
   M 14 226; M 18 182; M 14 238; M 14 238; M 14 238; M 14 238; M 14 238;
   M 18 182; M 14 238; M 18 182; M 14 238; M 18 182; M 18 182; M 14 238;
   M 18 182; M 14 192; M 14 192; M 14 226; M 14 192; M 18 182; M 14 192;
   M 14 182
  ].

(** Parse states 8700 to 8849. *)
Definition ts_lex_modes_8700 : list TSLexMode :=
  [
   M 18 182; M 18 182; M 14 200; M 14 200; M 14 238; M 14 198; M 14 192;
   M 14 226; M 14 226; M 18 182; M 14 177; M 14 177; M 14 177; M 14 177;
   M 18 182; M 14 177; M 14 228; M 14 228; M 14 228; M 14 194; M 14 177;
   M 14 228; M 14 177; M 14 228; M 14 177; M 14 177; M 14 177; M 14 226;
   M 14 228; M 14 228; M 14 228; M 14 228; M 14 228; M 14 226; M 14 177;
   M 14 228; M 14 198; M 14 177; M 14 228; M 14 228; M 14 198; M 14 177;
   M 14 228; M 14 177; M 14 228; M 14 177; M 14 228; M 14 228; M 14 228;
   M 14 198; M 14 177; M 14 177; M 14 177; M 14 228; M 14 228; M 14 177;
   M 14 228; M 14 177; M 14 228; M 14 177; M 14 177; M 14 195; M 14 195;
   M 14 226; M 14 194; M 14 228; M 14 198; M 14 198; M 14 228; M 18 182;
   M 14 194; M 14 194; M 14 194; M 14 194; M 14 194; M 14 228; M 14 198;
   M 14 194; M 14 177; M 14 194; M 14 198; M 18 182; M 18 182; M 18 182;
   M 18 182; M 14 177; M 18 182; M 14 182; M 18 182; M 14 226; M 14 226;
   M 14 194; M 18 182; M 14 232; M 14 232; M 14 232; M 14 232; M 14 192;
   M 14 232; M 12 182; M 12 182; M 12 182; M 12 182; M 12 182; M 14 206;
   M 14 232; M 14 206; M 14 206; M 14 206; M 14 206; M 14 206; M 14 206;
   M 14 232; M 14 232; M 14 232; M 14 232; M 14 232; M 14 232; M 14 182;
   M 32 227; M 14 232; M 14 232; M 14 232; M 14 232; M 14 232; M 14 240;
   M 14 232; M 14 192; M 14 232; M 14 232; M 18 182; M 14 232; M 14 179;
   M 14 182; M 14 232; M 14 192; M 14 234; M 14 234; M 14 234; M 14 234;
   M 14 232; M 14 241; M 14 241; M 14 182; M 14 240; M 14 226; M 14 226;
   M 14 242; M 14 234; M 14 234
  ].

(** Parse states 8850 to 8999. *)
Definition ts_lex_modes_8850 : list TSLexMode :=
  [
   M 14 234; M 14 240; M 14 240; M 14 240; M 14 240; M 14 240; M 14 234;
   M 14 182; M 14 240; M 14 177; M 18 216; M 18 216; M 14 182; M 14 240;
   M 14 243; M 14 243; M 18 216; M 14 242; M 14 234; M 12 209; M 18 216;
   M 14 234; M 5 237; M 14 242; M 14 242; M 14 242; M 5 237; M 14 242;
   M 14 242; M 18 216; M 5 237; M 14 242; M 14 242; M 18 216; M 18 216;
   M 18 216; M 18 216; M 18 216; M 14 234; M 14 226; M 18 216; M 18 216;
   M 18 216; M 18 216; M 18 216; M 14 234; M 18 216; M 18 216; M 18 216;
   M 18 216; M 18 216; M 18 216; M 14 234; M 18 216; M 14 234; M 14 240;
   M 14 234; M 14 234; M 14 234; M 14 234; M 14 234; M 14 234; M 14 234;
   M 14 234; M 18 182; M 18 216; M 14 182; M 14 196; M 14 226; M 18 216;
   M 14 234; M 14 196; M 14 179; M 14 198; M 14 232; M 14 234; M 14 242;
   M 14 226; M 14 226; M 14 226; M 14 234; M 14 188; M 14 188; M 14 188;
   M 14 188; M 14 188; M 14 199; M 14 199; M 14 196; M 145 182; M 14 188;
   M 12 182; M 14 206; M 14 188; M 14 188; M 14 188; M 14 188; M 145 182;
   M 14 196; M 14 196; M 14 196; M 14 196; M 14 226; M 14 196; M 145 182;
   M 145 182; M 14 196; M 145 182; M 145 182; M 14 188; M 145 182; M 14 196;
   M 145 182; M 145 182; M 145 182; M 145 182; M 145 182; M 145 182;
   M 145 182; M 145 182; M 145 182; M 145 182; M 145 182; M 14 188; M 14 179;
   M 145 182; M 145 182; M 14 179; M 145 182; M 145 182; M 14 179; M 145 182;
   M 145 182; M 145 182; M 145 182; M 14 179; M 145 182; M 145 182; M 145 182;
   M 14 188; M 14 188; M 14 179; M 145 182; M 145 182; M 14 179; M 14 179;
   M 145 182; M 14 179; M 14 188; M 145 182
  ].

(** Parse states 9000 to 9149. *)
Definition ts_lex_modes_9000 : list TSLexMode :=
  [
   M 14 179; M 14 179; M 14 188; M 14 188; M 14 188; M 145 182; M 14 188;
   M 14 179; M 14 188; M 145 182; M 14 188; M 14 179; M 14 179; M 14 179;
   M 14 179; M 14 179; M 14 179; M 14 179; M 14 188; M 14 179; M 14 179;
   M 14 179; M 14 232; M 14 198; M 14 238; M 14 182; M 14 238; M 14 238;
   M 14 238; M 14 238; M 12 169; M 12 217; M 14 238; M 14 238; M 14 238;
   M 14 238; M 14 238; M 14 238; M 14 238; M 14 238; M 14 238; M 14 238;
   M 14 238; M 14 238; M 14 192; M 7 63; M 7 63; M 14 192; M 14 238; M 14 182;
   M 14 182; M 14 182; M 14 182; M 14 182; M 14 182; M 14 182; M 14 238;
   M 14 182; M 14 198; M 14 182; M 14 198; M 14 198; M 14 198; M 14 198;
   M 7 63; M 7 63; M 7 63; M 7 63; M 7 63; M 7 63; M 12 214; M 7 63; M 14 244;
   M 12 217; M 14 198; M 7 63; M 14 206; M 14 198; M 14 198; M 14 198;
   M 14 198; M 7 63; M 14 182; M 7 63; M 14 182; M 14 182; M 7 63; M 7 63;
   M 7 63; M 7 63; M 12 214; M 7 63; M 14 182; M 14 182; M 14 182; M 14 182;
   M 14 182; M 14 182; M 7 63; M 7 63; M 12 167; M 14 182; M 7 63; M 14 194;
   M 14 182; M 14 194; M 14 194; M 14 198; M 14 194; M 7 63; M 14 194;
   M 14 182; M 14 194; M 14 194; M 14 194; M 14 194; M 14 194; M 7 63;
   M 12 217; M 14 182; M 14 194; M 7 63; M 14 182; M 14 198; M 14 198;
   M 14 198; M 14 194; M 14 194; M 14 198; M 14 198; M 14 198; M 14 194;
   M 14 198; M 14 194; M 14 194; M 14 194; M 14 194; M 14 198; M 7 63;
   M 14 198; M 12 217; M 14 194; M 14 198; M 14 194; M 14 194; M 14 194;
   M 14 182; M 14 198; M 7 63; M 14 182
  ].

(** Parse states 9150 to 9299. *)
Definition ts_lex_modes_9150 : list TSLexMode :=
  [
   M 14 194; M 14 198; M 7 63; M 14 182; M 14 194; M 7 63; M 14 182; M 14 192;
   M 14 182; M 14 192; M 7 63; M 14 194; M 14 244; M 14 192; M 14 182;
   M 14 182; M 14 182; M 14 182; M 14 192; M 14 182; M 14 182; M 14 192;
   M 14 192; M 7 63; M 14 198; M 14 182; M 7 63; M 7 63; M 12 224; M 7 63;
   M 14 206; M 14 206; M 7 63; M 12 217; M 14 192; M 14 192; M 14 206;
   M 14 192; M 14 192; M 14 206; M 14 206; M 14 206; M 14 192; M 12 224;
   M 14 192; M 7 63; M 14 206; M 12 167; M 12 167; M 14 182; M 14 182;
   M 14 182; M 14 182; M 14 182; M 14 182; M 12 167; M 14 182; M 14 182;
   M 14 206; M 14 206; M 14 240; M 14 240; M 14 240; M 12 169; M 14 240;
   M 14 206; M 14 240; M 14 240; M 14 240; M 14 240; M 14 240; M 14 240;
   M 7 63; M 12 169; M 14 206; M 14 240; M 14 206; M 12 167; M 14 206;
   M 14 240; M 14 240; M 14 240; M 14 240; M 14 206; M 14 240; M 14 240;
   M 14 240; M 14 206; M 14 240; M 14 240; M 12 217; M 14 240; M 14 206;
   M 14 240; M 14 206; M 14 206; M 14 206; M 14 240; M 14 242; M 14 242;
   M 14 242; M 14 242; M 14 192; M 14 242; M 14 240; M 12 220; M 14 242;
   M 14 242; M 12 169; M 14 242; M 14 242; M 14 242; M 14 182; M 14 182;
   M 14 206; M 14 206; M 14 242; M 14 192; M 14 182; M 14 182; M 14 240;
   M 14 182; M 14 242; M 14 242; M 12 169; M 12 169; M 14 242; M 14 242;
   M 14 182; M 14 242; M 14 242; M 14 242; M 14 242; M 14 242; M 14 242;
   M 14 242; M 14 182; M 14 182; M 12 169; M 14 242; M 12 169; M 14 206;
   M 14 244; M 12 217; M 14 242; M 14 206; M 14 206; M 14 206; M 14 206;
   M 14 206
  ].

(** Parse states 9300 to 9449. *)
Definition ts_lex_modes_9300 : list TSLexMode :=
  [
   M 12 216; M 14 206; M 14 206; M 14 206; M 14 242; M 12 216; M 12 217;
   M 14 182; M 14 206; M 14 206; M 14 192; M 14 245; M 14 245; M 14 182;
   M 14 192; M 12 217; M 14 192; M 14 244; M 12 211; M 14 192; M 12 182;
   M 14 206; M 14 196; M 14 196; M 14 196; M 14 196; M 12 217; M 14 196;
   M 14 196; M 14 196; M 14 196; M 14 196; M 14 196; M 14 196; M 7 63;
   M 12 217; M 14 206; M 14 196; M 14 196; M 14 244; M 14 244; M 14 244;
   M 14 196; M 14 244; M 14 206; M 14 244; M 14 244; M 14 196; M 7 63;
   M 14 196; M 14 196; M 14 196; M 14 196; M 14 196; M 14 196; M 14 196;
   M 14 192; M 7 63; M 7 63; M 14 192; M 12 217; M 14 196; M 12 222; M 14 192;
   M 12 217; M 7 63; M 7 63; M 14 196; M 14 238; M 7 63; M 14 182; M 14 238;
   M 14 238; M 14 238; M 14 196; M 12 214; M 14 238; M 14 192; M 14 182;
   M 12 182; M 14 192; M 14 238; M 14 182; M 12 217; M 12 234; M 13 182;
   M 12 188; M 14 244; M 13 182; M 13 182; M 13 182; M 12 182; M 12 182;
   M 12 234; M 7 78; M 12 182; M 13 182; M 12 182; M 17 182; M 13 182;
   M 17 182; M 13 182; M 17 182; M 13 182; M 12 182; M 7 78; M 12 182;
   M 144 235; M 12 177; M 13 182; M 13 182; M 13 182; M 14 244; M 144 127;
   M 13 182; M 14 244; M 13 182; M 13 182; M 144 127; M 12 188; M 12 177;
   M 12 177; M 13 182; M 12 188; M 13 182; M 144 235; M 12 182; M 13 182;
   M 13 182; M 13 182; M 13 182; M 13 182; M 12 179; M 12 234; M 13 182;
   M 13 182; M 12 188; M 12 234; M 12 232; M 13 182; M 13 182; M 12 188;
   M 12 188; M 13 182; M 13 182; M 12 182; M 7 78; M 13 182; M 13 182;
   M 13 182
  ].

(** Parse states 9450 to 9599. *)
Definition ts_lex_modes_9450 : list TSLexMode :=
  [
   M 12 232; M 144 229; M 13 182; M 144 229; M 13 182; M 13 182; M 13 182;
   M 144 235; M 13 182; M 13 182; M 13 182; M 13 182; M 13 182; M 13 182;
   M 13 182; M 12 188; M 13 182; M 13 182; M 12 182; M 13 182; M 13 182;
   M 13 182; M 13 182; M 12 179; M 13 182; M 13 182; M 13 182; M 13 182;
   M 13 182; M 13 182; M 13 182; M 13 182; M 13 182; M 13 182; M 13 182;
   M 13 182; M 14 244; M 13 182; M 12 188; M 13 182; M 12 234; M 14 244;
   M 12 234; M 13 182; M 13 182; M 12 182; M 144 235; M 144 107; M 7 78;
   M 13 182; M 13 182; M 13 182; M 12 182; M 12 182; M 12 177; M 13 182;
   M 12 234; M 13 182; M 13 182; M 144 127; M 13 182; M 13 182; M 144 235;
   M 13 182; M 144 127; M 13 182; M 12 182; M 17 216; M 13 182; M 13 182;
   M 13 182; M 14 244; M 144 127; M 12 234; M 13 182; M 14 244; M 12 177;
   M 14 244; M 14 244; M 14 244; M 13 182; M 14 244; M 13 182; M 12 182;
   M 12 228; M 12 182; M 14 244; M 13 182; M 12 234; M 14 244; M 13 182;
   M 13 182; M 12 234; M 13 182; M 144 229; M 13 182; M 12 179; M 17 216;
   M 12 234; M 13 182; M 13 182; M 14 244; M 12 177; M 13 182; M 14 244;
   M 12 182; M 13 182; M 12 234; M 13 182; M 12 234; M 14 244; M 13 182;
   M 12 177; M 13 182; M 13 182; M 13 182; M 13 182; M 14 244; M 14 244;
   M 13 182; M 12 179; M 12 234; M 12 182; M 13 182; M 13 182; M 13 182;
   M 14 244; M 144 246; M 13 182; M 13 182; M 12 182; M 13 182; M 13 182;
   M 13 182; M 12 182; M 12 188; M 13 182; M 12 179; M 12 188; M 12 188;
   M 13 182; M 13 182; M 13 182; M 12 234; M 14 244; M 12 182; M 13 182;
   M 14 244; M 13 182; M 12 177
  ].

(** Parse states 9600 to 9749. *)
Definition ts_lex_modes_9600 : list TSLexMode :=
  [
   M 14 244; M 13 182; M 12 182; M 13 182; M 13 182; M 14 244; M 13 182;
   M 12 182; M 13 182; M 144 229; M 13 182; M 14 244; M 144 229; M 13 182;
   M 13 182; M 14 244; M 13 182; M 13 182; M 12 226; M 13 182; M 12 182;
   M 12 192; M 12 240; M 17 182; M 12 192; M 12 206; M 12 196; M 144 107;
   M 12 198; M 12 240; M 12 206; M 12 206; M 12 206; M 12 192; M 12 192;
   M 12 182; M 144 107; M 12 192; M 12 192; M 12 206; M 12 240; M 12 206;
   M 12 192; M 12 192; M 12 192; M 12 206; M 12 192; M 12 194; M 12 192;
   M 144 107; M 12 206; M 12 192; M 144 107; M 12 192; M 12 240; M 12 192;
   M 12 206; M 12 196; M 12 206; M 12 206; M 12 206; M 12 206; M 12 240;
   M 12 238; M 12 206; M 12 206; M 12 240; M 12 206; M 144 107; M 12 206;
   M 12 206; M 12 206; M 12 192; M 12 194; M 12 194; M 12 206; M 12 196;
   M 12 240; M 12 192; M 12 206; M 12 206; M 12 206; M 12 206; M 12 238;
   M 12 206; M 144 107; M 12 182; M 12 206; M 12 182; M 12 182; M 12 240;
   M 12 182; M 17 182; M 12 182; M 12 182; M 12 206; M 12 206; M 144 107;
   M 12 240; M 12 240; M 12 238; M 12 240; M 12 206; M 12 198; M 12 240;
   M 12 192; M 12 192; M 12 192; M 12 192; M 12 192; M 7 77; M 12 240;
   M 12 192; M 12 192; M 12 206; M 12 192; M 12 206; M 12 206; M 12 192;
   M 12 206; M 7 77; M 12 238; M 12 192; M 7 77; M 12 206; M 13 182; M 12 206;
   M 12 192; M 17 182; M 12 192; M 12 182; M 12 192; M 12 238; M 12 206;
   M 12 240; M 12 240; M 144 107; M 12 192; M 12 198; M 12 206; M 12 206;
   M 12 206; M 12 206; M 12 206; M 144 107; M 12 240; M 12 206; M 12 240;
   M 144 107; M 12 206
  ].

(** Parse states 9750 to 9899. *)
Definition ts_lex_modes_9750 : list TSLexMode :=
  [
   M 12 206; M 12 196; M 12 206; M 12 192; M 12 192; M 12 206; M 12 240;
   M 12 192; M 12 206; M 144 107; M 12 238; M 12 240; M 12 242; M 12 192;
   M 12 240; M 12 192; M 12 206; M 12 206; M 12 206; M 12 192; M 12 206;
   M 12 206; M 17 182; M 12 182; M 12 240; M 12 192; M 12 240; M 12 238;
   M 12 192; M 144 107; M 12 206; M 12 192; M 12 206; M 12 206; M 12 194;
   M 12 192; M 12 206; M 12 206; M 12 206; M 12 240; M 12 206; M 12 192;
   M 12 198; M 12 206; M 12 192; M 12 192; M 12 206; M 12 240; M 12 206;
   M 12 196; M 12 238; M 12 192; M 12 240; M 12 206; M 12 206; M 13 182;
   M 12 206; M 12 206; M 12 206; M 12 192; M 12 192; M 12 206; M 12 192;
   M 12 206; M 12 206; M 12 194; M 12 206; M 7 77; M 12 240; M 12 206;
   M 144 107; M 12 206; M 12 240; M 12 206; M 12 240; M 12 244; M 12 206;
   M 12 244; M 12 192; M 12 182; M 12 206; M 12 182; M 12 182; M 7 83;
   M 144 190; M 144 137; M 12 182; M 12 182; M 12 182; M 12 206; M 12 206;
   M 12 206; M 12 206; M 12 206; M 12 192; M 12 206; M 12 182; M 144 190;
   M 12 192; M 12 244; M 12 244; M 12 216; M 12 244; M 12 206; M 12 206;
   M 12 244; M 12 182; M 12 182; M 12 206; M 12 182; M 12 206; M 12 206;
   M 12 206; M 12 206; M 12 192; M 12 206; M 12 216; M 12 206; M 12 244;
   M 12 244; M 12 206; M 12 206; M 12 192; M 12 206; M 12 244; M 12 182;
   M 12 206; M 12 244; M 12 182; M 12 182; M 12 182; M 12 244; M 12 206;
   M 12 206; M 7 78; M 12 206; M 12 206; M 7 78; M 12 206; M 12 206; M 12 192;
   M 12 182; M 12 206; M 12 216; M 12 244; M 12 244; M 12 206; M 12 244;
   M 144 190; M 12 182
  ].

(** Parse states 9900 to 10049. *)
Definition ts_lex_modes_9900 : list TSLexMode :=
  [
   M 12 182; M 144 137; M 12 206; M 12 192; M 144 137; M 12 206; M 12 206;
   M 12 244; M 12 206; M 12 206; M 12 206; M 12 182; M 12 182; M 12 192;
   M 12 206; M 12 244; M 12 206; M 12 216; M 12 192; M 12 244; M 12 206;
   M 12 192; M 12 244; M 12 182; M 12 244; M 144 197; M 12 182; M 12 182;
   M 12 182; M 12 206; M 12 192; M 12 206; M 12 206; M 12 182; M 144 197;
   M 12 244; M 12 244; M 12 216; M 12 244; M 12 192; M 12 206; M 12 216;
   M 12 182; M 12 206; M 12 206; M 12 206; M 12 192; M 12 192; M 12 182;
   M 12 244; M 12 182; M 12 182; M 12 192; M 12 206; M 12 206; M 12 206;
   M 144 197; M 12 206; M 12 216; M 12 244; M 12 244; M 12 182; M 12 244;
   M 12 216; M 12 206; M 12 192; M 12 206; M 12 206; M 12 244; M 7 78;
   M 12 216; M 12 192; M 12 182; M 12 192; M 12 216; M 12 182; M 12 192;
   M 12 216; M 12 182; M 12 244; M 12 182; M 12 182; M 12 216; M 12 206;
   M 12 206; M 12 192; M 12 206; M 12 192; M 7 78; M 12 216; M 12 244;
   M 12 244; M 12 182; M 12 216; M 12 206; M 12 182; M 12 244; M 12 206;
   M 12 192; M 12 182; M 12 216; M 12 244; M 12 182; M 12 182; M 12 182;
   M 12 182; M 12 192; M 12 216; M 12 182; M 12 216; M 12 206; M 12 192;
   M 12 206; M 12 244; M 12 216; M 12 244; M 12 192; M 12 216; M 12 206;
   M 12 182; M 12 216; M 12 206; M 12 216; M 12 206; M 12 244; M 12 192;
   M 12 206; M 12 206; M 12 206; M 12 216; M 12 206; M 12 206; M 12 192;
   M 12 182; M 12 216; M 12 182; M 12 182; M 12 182; M 12 206; M 12 206;
   M 12 216; M 12 192; M 12 216; M 12 192; M 12 216; M 7 83; M 12 182;
   M 12 216; M 12 244; M 12 192
  ].

(** Parse states 10050 to 10199. *)
Definition ts_lex_modes_10050 : list TSLexMode :=
  [
   M 12 206; M 12 192; M 12 244; M 12 244; M 12 182; M 144 137; M 12 206;
   M 7 78; M 12 182; M 12 206; M 12 206; M 12 192; M 12 182; M 12 192;
   M 12 216; M 12 244; M 12 182; M 7 78; M 12 206; M 7 78; M 7 78; M 12 244;
   M 12 182; M 12 192; M 12 182; M 12 206; M 12 182; M 12 244; M 12 216;
   M 12 206; M 12 206; M 12 182; M 12 192; M 12 192; M 12 192; M 12 206;
   M 12 182; M 12 206; M 12 182; M 12 192; M 12 192; M 12 182; M 12 182;
   M 12 182; M 7 78; M 7 78; M 12 192; M 12 192; M 12 182; M 12 244; M 12 216;
   M 12 244; M 12 192; M 12 206; M 12 244; M 144 137; M 12 182; M 12 182;
   M 12 182; M 12 206; M 12 244; M 12 216; M 12 192; M 12 206; M 12 182;
   M 12 206; M 12 206; M 12 182; M 12 206; M 12 192; M 12 192; M 144 137;
   M 12 244; M 12 216; M 12 206; M 12 216; M 12 244; M 12 206; M 7 78;
   M 12 244; M 12 244; M 12 216; M 12 206; M 12 192; M 12 244; M 12 216;
   M 12 244; M 12 182; M 12 244; M 12 216; M 12 182; M 12 182; M 12 244;
   M 12 206; M 12 244; M 12 182; M 12 244; M 144 137; M 12 244; M 12 244;
   M 12 182; M 12 244; M 12 182; M 12 206; M 12 244; M 12 244; M 12 206;
   M 12 244; M 7 78; M 12 206; M 12 244; M 12 206; M 12 206; M 12 192;
   M 12 206; M 12 244; M 12 192; M 12 244; M 12 206; M 12 206; M 12 244;
   M 12 244; M 12 182; M 12 244; M 12 192; M 12 244; M 12 206; M 12 244;
   M 12 206; M 12 192; M 12 244; M 12 244; M 12 244; M 12 244; M 12 244;
   M 12 244; M 12 244; M 12 244; M 12 244; M 12 244; M 12 244; M 12 244;
   M 12 244; M 12 244; M 12 244; M 12 244; M 12 244; M 12 244; M 12 244;
   M 12 244
  ].

(** Parse states 10200 to 10349. *)
Definition ts_lex_modes_10200 : list TSLexMode :=
  [
   M 12 244; M 12 244; M 12 244; M 12 244; M 12 244; M 12 244; M 12 244;
   M 12 244; M 12 206; M 12 244; M 12 206; M 12 244; M 12 206; M 12 182;
   M 12 206; M 12 182; M 12 182; M 12 244; M 12 206; M 12 206; M 12 182;
   M 12 206; M 12 206; M 12 206; M 12 206; M 12 192; M 12 182; M 12 182;
   M 12 244; M 12 192; M 12 206; M 12 192; M 12 182; M 12 182; M 12 192;
   M 12 182; M 12 192; M 12 206; M 12 206; M 12 244; M 12 216; M 12 192;
   M 144 197; M 12 206; M 144 190; M 12 244; M 12 244; M 144 137; M 12 182;
   M 144 139; M 144 144; M 144 144; M 144 139; M 144 144; M 144 144; M 12 182;
   M 12 182; M 12 182; M 144 144; M 144 139; M 144 139; M 144 139; M 144 139;
   M 12 182; M 12 182; M 144 139; M 12 182; M 144 139; M 144 139; M 12 182;
   M 12 182; M 12 182; M 12 182; M 12 182; M 12 182; M 12 182; M 32 247;
   M 12 182; M 12 182; M 12 182; M 12 182; M 144 139; M 144 139; M 144 139;
   M 144 144; M 144 139; M 12 182; M 32 247; M 12 182; M 144 139; M 12 182;
   M 32 247; M 12 182; M 12 182; M 12 182; M 144 139; M 144 139; M 144 139;
   M 12 182; M 12 182; M 144 144; M 144 144; M 12 182; M 12 182; M 144 144;
   M 12 182; M 12 182; M 12 182; M 12 182; M 144 144; M 12 182; M 144 139;
   M 12 182; M 12 182; M 12 182; M 144 144; M 12 182; M 144 139; M 12 182;
   M 12 182; M 12 182; M 144 144; M 12 182; M 144 144; M 12 182; M 144 144;
   M 144 139; M 12 182; M 144 139; M 32 247; M 12 182; M 12 182; M 12 182;
   M 144 144; M 144 144; M 144 144; M 12 182; M 12 182; M 12 182; M 12 182;
   M 12 182; M 12 182; M 144 139; M 144 139; M 144 139; M 12 182; M 144 139;
   M 12 182; M 144 248; M 12 211
  ].

(** Parse states 10350 to 10499. *)
Definition ts_lex_modes_10350 : list TSLexMode :=
  [
   M 144 248; M 32 247; M 12 249; M 12 249; M 144 248; M 144 248; M 32 247;
   M 37 250; M 37 250; M 37 250; M 41 250; M 144 155; M 37 250; M 144 155;
   M 144 136; M 144 229; M 38 251; M 144 136; M 144 155; M 144 136; M 38 251;
   M 144 136; M 144 136; M 144 136; M 144 235; M 144 159; M 144 159;
   M 144 159; M 144 229; M 144 229; M 144 136; M 144 127; M 144 155; M 38 251;
   M 37 250; M 37 250; M 144 235; M 144 127; M 38 251; M 144 127; M 144 136;
   M 144 159; M 144 136; M 144 136; M 144 136; M 144 127; M 144 136;
   M 144 235; M 42 251; M 144 235; M 144 136; M 144 229; M 144 136; M 144 136;
   M 144 159; M 144 136; M 144 159; M 144 155; M 144 136; M 144 155;
   M 144 159; M 144 136; M 144 155; M 144 136; M 144 159; M 144 159;
   M 144 159; M 144 155; M 144 159; M 144 159; M 144 159; M 144 159;
   M 144 136; M 144 155; M 144 155; M 144 155; M 144 136; M 144 136;
   M 144 155; M 144 136; M 144 136; M 144 159; M 144 159; M 144 159; M 36 252;
   M 38 251; M 144 159; M 144 159; M 144 159; M 144 159; M 144 159; M 144 136;
   M 12 249; M 144 136; M 144 136; M 144 136; M 144 136; M 144 136; M 144 136;
   M 144 155; M 144 136; M 144 155; M 144 155; M 144 155; M 144 155;
   M 144 136; M 144 136; M 144 155; M 144 155; M 144 155; M 144 155;
   M 144 136; M 144 155; M 36 252; M 144 155; M 144 136; M 40 252; M 144 159;
   M 144 136; M 144 155; M 144 136; M 36 252; M 144 155; M 144 159; M 144 159;
   M 144 155; M 144 136; M 144 155; M 144 136; M 38 251; M 144 159; M 144 159;
   M 13 253; M 36 252; M 13 253; M 36 252; M 12 252; M 37 254; M 12 252;
   M 144 255; M 144 255; M 144 255; M 21 256; M 12 252; M 12 252; M 144 255;
   M 12 252; M 37 254; M 144 255; M 144 255
  ].

(** Parse states 10500 to 10649. *)
Definition ts_lex_modes_10500 : list TSLexMode :=
  [
   M 144 255; M 37 254; M 12 252; M 12 257; M 12 252; M 37 254; M 12 252;
   M 41 254; M 144 255; M 21 256; M 12 252; M 12 257; M 144 255; M 144 255;
   M 144 255; M 21 256; M 144 255; M 21 256; M 17 253; M 37 254; M 37 254;
   M 17 253; M 21 258; M 37 251; M 21 258; M 145 259; M 21 260; M 21 258;
   M 21 256; M 13 253; M 21 260; M 145 259; M 145 259; M 21 258; M 41 251;
   M 145 259; M 37 251; M 37 251; M 37 251; M 144 255; M 21 256; M 21 256;
   M 40 261; M 21 258; M 36 262; M 21 258; M 44 254; M 21 260; M 37 251;
   M 44 254; M 44 254; M 36 261; M 37 251; M 36 262; M 21 258; M 46 254;
   M 36 261; M 36 261; M 21 260; M 36 262; M 44 254; M 36 262; M 145 263;
   M 36 264; M 145 263; M 145 263; M 21 265; M 36 262; M 21 265; M 36 264;
   M 44 254; M 36 261; M 36 266; M 36 261; M 145 263; M 36 264; M 36 262;
   M 12 257; M 145 263; M 145 263; M 44 254; M 21 267; M 36 266; M 21 267;
   M 6 268; M 145 263; M 36 266; M 40 266; M 21 265; M 6 268; M 21 267;
   M 36 264; M 145 269; M 145 263; M 21 265; M 21 267; M 145 263; M 13 261;
   M 10 270; M 13 261; M 21 271; M 45 261; M 10 270; M 43 261; M 21 267;
   M 13 261; M 43 261; M 13 261; M 10 270; M 21 265; M 21 272; M 21 272;
   M 21 273; M 36 264; M 13 261; M 145 274; M 145 274; M 145 275; M 21 272;
   M 21 276; M 13 261; M 36 266; M 21 265; M 145 274; M 10 270; M 21 276;
   M 21 271; M 145 274; M 21 272; M 21 271; M 21 265; M 21 273; M 10 270;
   M 17 253; M 21 271; M 21 276; M 43 261; M 10 270; M 145 274; M 10 270;
   M 145 274; M 145 274; M 21 267; M 10 277; M 21 273; M 10 270; M 10 277;
   M 13 261; M 36 266; M 10 270
  ].

(** Parse states 10650 to 10799. *)
Definition ts_lex_modes_10650 : list TSLexMode :=
  [
   M 10 270; M 145 278; M 145 274; M 21 273; M 21 267; M 10 270; M 10 270;
   M 36 264; M 145 263; M 43 261; M 145 274; M 21 279; M 21 279; M 145 268;
   M 10 270; M 145 263; M 145 268; M 145 274; M 145 274; M 12 261; M 145 274;
   M 10 270; M 145 280; M 21 272; M 145 274; M 145 274; M 145 274; M 21 276;
   M 145 263; M 21 272; M 145 268; M 145 275; M 145 274; M 145 274; M 145 274;
   M 21 281; M 21 282; M 145 263; M 43 261; M 37 261; M 145 274; M 145 274;
   M 145 263; M 21 282; M 145 274; M 21 271; M 145 263; M 12 261; M 21 279;
   M 21 281; M 21 281; M 145 274; M 41 261; M 145 268; M 21 271; M 145 274;
   M 21 273; M 10 270; M 145 263; M 21 281; M 21 276; M 145 263; M 145 268;
   M 145 274; M 21 273; M 145 263; M 145 274; M 21 282; M 21 282; M 21 272;
   M 37 261; M 21 273; M 145 274; M 10 270; M 21 279; M 10 270; M 145 274;
   M 37 261; M 145 274; M 21 271; M 145 275; M 145 274; M 145 283; M 145 263;
   M 145 274; M 145 268; M 145 274; M 145 274; M 145 274; M 145 283;
   M 145 274; M 21 284; M 145 274; M 37 261; M 145 274; M 145 283; M 21 279;
   M 145 274; M 145 274; M 21 282; M 145 274; M 145 283; M 144 270; M 145 274;
   M 145 274; M 21 281; M 145 274; M 145 263; M 145 274; M 145 274; M 21 260;
   M 145 274; M 145 283; M 145 274; M 145 283; M 145 274; M 145 274;
   M 145 268; M 145 274; M 21 260; M 145 283; M 144 270; M 145 274; M 145 274;
   M 145 274; M 145 274; M 145 274; M 145 280; M 145 283; M 145 274;
   M 145 285; M 145 274; M 145 274; M 145 263; M 145 263; M 145 274;
   M 145 283; M 145 274; M 145 274; M 144 270; M 144 270; M 145 274;
   M 145 283; M 21 279; M 21 284; M 145 274; M 145 274; M 145 274; M 145 283;
   M 145 274
  ].

(** Parse states 10800 to 10949. *)
Definition ts_lex_modes_10800 : list TSLexMode :=
  [
   M 145 274; M 145 274; M 145 274; M 145 283; M 145 274; M 145 274;
   M 145 274; M 145 286; M 145 275; M 145 274; M 145 283; M 144 270; M 21 281;
   M 145 263; M 145 274; M 145 280; M 145 274; M 145 263; M 145 274;
   M 145 263; M 145 283; M 145 274; M 145 274; M 145 274; M 145 274;
   M 145 274; M 145 274; M 145 283; M 10 270; M 145 274; M 145 283; M 145 274;
   M 145 274; M 144 270; M 145 274; M 145 275; M 145 283; M 145 263;
   M 145 274; M 144 270; M 144 270; M 145 274; M 145 274; M 145 274;
   M 145 283; M 21 282; M 145 274; M 145 274; M 145 263; M 145 274; M 145 283;
   M 145 274; M 145 274; M 145 283; M 145 274; M 145 274; M 145 274;
   M 145 283; M 145 274; M 145 274; M 145 274; M 145 274; M 145 263;
   M 145 283; M 145 263; M 145 274; M 145 274; M 145 283; M 145 268;
   M 145 274; M 145 274; M 145 264; M 145 263; M 145 285; M 145 274;
   M 145 274; M 145 274; M 145 274; M 145 286; M 145 274; M 145 274;
   M 145 274; M 145 274; M 145 263; M 145 274; M 145 274; M 145 274;
   M 145 274; M 145 280; M 145 263; M 145 274; M 145 274; M 145 274;
   M 145 274; M 145 263; M 145 274; M 145 274; M 145 263; M 145 274;
   M 144 270; M 145 274; M 145 274; M 144 277; M 145 274; M 145 263;
   M 145 275; M 145 274; M 145 274; M 145 274; M 145 274; M 145 274;
   M 145 283; M 145 274; M 145 263; M 145 274; M 145 263; M 145 274;
   M 145 274; M 145 274; M 145 274; M 145 263; M 10 270; M 145 274; M 145 274;
   M 145 274; M 145 274; M 144 270; M 145 274; M 145 274; M 145 274;
   M 145 274; M 145 274; M 145 263; M 145 274; M 145 263; M 145 263;
   M 145 263; M 145 263; M 145 274; M 145 263; M 145 263; M 145 274;
   M 145 263; M 144 277; M 145 274; M 145 263; M 145 263; M 145 274;
   M 145 274; M 145 274
  ].

(** Parse states 10950 to 11099. *)
Definition ts_lex_modes_10950 : list TSLexMode :=
  [
   M 145 274; M 145 263; M 145 275; M 145 263; M 145 274; M 145 274;
   M 145 263; M 145 274; M 145 274; M 145 274; M 145 274; M 145 274;
   M 145 274; M 145 263; M 145 263; M 12 266; M 145 274; M 145 263; M 145 274;
   M 21 284; M 145 274; M 145 263; M 145 274; M 145 274; M 145 274; M 145 274;
   M 145 274; M 145 274; M 145 283; M 145 274; M 145 274; M 145 283;
   M 145 263; M 145 274; M 12 266; M 145 263; M 145 263; M 145 274; M 145 274;
   M 145 263; M 145 274; M 145 274; M 145 274; M 145 263; M 145 263;
   M 145 274; M 145 274; M 145 263; M 145 285; M 145 274; M 12 266; M 145 283;
   M 145 286; M 21 279; M 145 274; M 144 270; M 145 274; M 12 266; M 145 283;
   M 145 274; M 145 263; M 145 274; M 144 270; M 145 263; M 145 274;
   M 145 263; M 145 263; M 144 270; M 145 274; M 12 266; M 12 266; M 145 274;
   M 145 263; M 145 263; M 145 274; M 145 263; M 12 266; M 145 286; M 145 274;
   M 145 283; M 145 274; M 145 263; M 145 274; M 145 274; M 145 274;
   M 145 263; M 12 266; M 12 266; M 145 274; M 145 274; M 145 274; M 145 275;
   M 145 274; M 145 274; M 145 283; M 145 274; M 21 282; M 145 283; M 145 263;
   M 145 263; M 21 281; M 145 274; M 145 274; M 145 274; M 145 263; M 145 283;
   M 145 268; M 145 263; M 145 268; M 145 274; M 145 274; M 145 274;
   M 145 283; M 145 274; M 145 274; M 145 263; M 37 261; M 21 284; M 145 274;
   M 145 263; M 40 0; M 145 263; M 145 283; M 145 283; M 145 263; M 145 283;
   M 145 287; M 145 283; M 145 283; M 145 283; M 145 283; M 145 288;
   M 145 283; M 145 283; M 40 0; M 145 283; M 145 263; M 145 283; M 17 261;
   M 145 283; M 40 0; M 145 263; M 145 283; M 145 289; M 145 263; M 145 263;
   M 36 290; M 145 283; M 144 270; M 40 0
  ].

(** Parse states 11100 to 11249. *)
Definition ts_lex_modes_11100 : list TSLexMode :=
  [
   M 145 286; M 40 0; M 144 270; M 145 263; M 145 263; M 145 286; M 145 291;
   M 17 261; M 17 261; M 17 261; M 145 269; M 145 287; M 144 270; M 145 286;
   M 145 291; M 40 0; M 40 0; M 145 263; M 17 261; M 10 292; M 145 283;
   M 40 0; M 145 283; M 36 260; M 40 0; M 145 286; M 145 263; M 145 283;
   M 40 0; M 145 283; M 145 263; M 145 287; M 145 283; M 145 263; M 145 283;
   M 145 283; M 17 261; M 17 261; M 40 0; M 145 287; M 17 261; M 145 263;
   M 40 0; M 40 0; M 145 283; M 145 269; M 21 260; M 40 0; M 145 283;
   M 145 283; M 10 277; M 145 283; M 36 290; M 145 263; M 145 263; M 145 263;
   M 145 283; M 145 283; M 145 287; M 145 283; M 145 263; M 145 287;
   M 145 263; M 145 269; M 145 283; M 21 284; M 145 263; M 145 283; M 145 283;
   M 145 283; M 145 263; M 145 283; M 145 283; M 145 287; M 145 283; M 36 290;
   M 145 283; M 145 291; M 40 0; M 36 260; M 145 283; M 145 289; M 145 293;
   M 145 283; M 40 0; M 145 283; M 145 294; M 145 283; M 145 283; M 40 0;
   M 145 287; M 145 283; M 40 0; M 145 283; M 145 283; M 145 288; M 145 283;
   M 36 290; M 145 283; M 40 0; M 145 283; M 40 0; M 145 283; M 145 263;
   M 145 263; M 40 0; M 145 263; M 145 263; M 17 261; M 145 283; M 145 286;
   M 145 263; M 40 0; M 145 263; M 145 263; M 145 283; M 145 269; M 145 283;
   M 145 263; M 145 263; M 145 263; M 145 283; M 145 283; M 145 295;
   M 145 263; M 145 289; M 40 0; M 145 283; M 21 284; M 40 0; M 145 263;
   M 10 292; M 145 289; M 145 283; M 145 283; M 145 296; M 145 269; M 145 297;
   M 6 298; M 145 283; M 145 283; M 40 270; M 145 283; M 145 283; M 13 261;
   M 145 269; M 145 287; M 145 283; M 145 283; M 145 283
  ].

(** Parse states 11250 to 11399. *)
Definition ts_lex_modes_11250 : list TSLexMode :=
  [
   M 145 283; M 40 270; M 145 283; M 145 283; M 145 283; M 145 283; M 145 287;
   M 145 283; M 145 269; M 145 283; M 145 283; M 145 283; M 145 283;
   M 145 283; M 145 283; M 145 283; M 145 287; M 145 283; M 145 283;
   M 145 283; M 145 283; M 145 299; M 13 261; M 145 283; M 145 283; M 145 283;
   M 6 298; M 145 287; M 145 283; M 145 283; M 145 283; M 145 283; M 145 283;
   M 145 283; M 145 283; M 145 283; M 145 283; M 145 283; M 145 283;
   M 145 283; M 145 283; M 145 283; M 145 283; M 145 283; M 145 283;
   M 145 283; M 145 283; M 13 261; M 36 300; M 145 283; M 145 287; M 145 283;
   M 145 283; M 145 283; M 145 283; M 145 296; M 145 283; M 145 301;
   M 145 283; M 145 283; M 145 283; M 145 283; M 145 283; M 13 261; M 145 283;
   M 36 300; M 145 269; M 13 261; M 145 283; M 145 283; M 145 287; M 145 283;
   M 145 283; M 145 283; M 145 287; M 145 283; M 145 283; M 145 283;
   M 145 283; M 145 302; M 145 283; M 145 283; M 145 283; M 36 290; M 145 283;
   M 145 283; M 145 287; M 145 269; M 145 283; M 145 283; M 145 287; M 36 300;
   M 145 283; M 145 283; M 145 283; M 145 283; M 36 290; M 145 283; M 145 283;
   M 145 283; M 145 283; M 145 269; M 145 283; M 145 283; M 145 283;
   M 145 283; M 145 303; M 36 300; M 36 304; M 145 283; M 145 283; M 145 283;
   M 145 278; M 33 305; M 33 305; M 33 305; M 145 278; M 6 270; M 33 305;
   M 33 305; M 145 306; M 145 278; M 36 276; M 33 305; M 33 305; M 36 276;
   M 145 0; M 33 305; M 33 305; M 33 305; M 33 305; M 33 305; M 33 305;
   M 33 305; M 33 305; M 33 305; M 33 305; M 33 305; M 145 278; M 145 278;
   M 33 305; M 33 305; M 33 305; M 33 305; M 145 278; M 145 278; M 145 278;
   M 33 305; M 145 307; M 33 305
  ].

(** Parse states 11400 to 11549. *)
Definition ts_lex_modes_11400 : list TSLexMode :=
  [
   M 33 305; M 145 278; M 145 278; M 33 305; M 33 305; M 33 305; M 33 305;
   M 145 278; M 33 305; M 33 305; M 145 270; M 33 305; M 6 270; M 33 305;
   M 33 305; M 33 305; M 33 305; M 33 305; M 145 278; M 145 278; M 6 270;
   M 33 305; M 33 305; M 33 305; M 33 305; M 145 278; M 6 308; M 33 305;
   M 33 305; M 145 278; M 33 305; M 33 305; M 43 290; M 33 305; M 33 305;
   M 43 290; M 33 305; M 33 305; M 33 305; M 33 305; M 33 305; M 33 305;
   M 33 305; M 145 278; M 33 305; M 145 278; M 33 305; M 33 305; M 145 278;
   M 33 305; M 145 278; M 145 278; M 33 305; M 145 270; M 145 309; M 6 270;
   M 33 305; M 33 305; M 43 290; M 33 305; M 145 278; M 145 278; M 145 278;
   M 145 278; M 33 305; M 33 305; M 145 278; M 33 305; M 6 270; M 145 278;
   M 33 305; M 145 278; M 145 278; M 33 305; M 145 278; M 145 278; M 33 305;
   M 145 278; M 145 310; M 33 305; M 145 278; M 145 278; M 145 278; M 145 278;
   M 33 305; M 33 305; M 145 278; M 33 305; M 145 278; M 36 300; M 40 270;
   M 145 278; M 6 270; M 33 305; M 33 305; M 6 270; M 145 270; M 6 270;
   M 33 305; M 33 305; M 33 305; M 145 278; M 6 270; M 33 305; M 145 278;
   M 145 270; M 145 278; M 145 309; M 33 305; M 33 305; M 144 277; M 33 305;
   M 145 278; M 145 278; M 145 270; M 33 305; M 145 278; M 33 305; M 145 311;
   M 145 291; M 145 312; M 144 292; M 10 292; M 36 304; M 36 300; M 33 305;
   M 33 305; M 145 278; M 145 278; M 145 278; M 144 292; M 33 305; M 145 297;
   M 33 305; M 145 306; M 40 0; M 6 308; M 145 270; M 33 305; M 33 305;
   M 6 270; M 33 305; M 43 290; M 145 313; M 145 278; M 145 0; M 145 280;
   M 145 278; M 145 0; M 17 0
  ].

(** Parse states 11550 to 11699. *)
Definition ts_lex_modes_11550 : list TSLexMode :=
  [
   M 36 0; M 17 0; M 145 278; M 145 270; M 145 278; M 145 280; M 145 314;
   M 145 280; M 145 278; M 9 298; M 145 298; M 17 0; M 145 280; M 145 278;
   M 145 278; M 145 270; M 40 0; M 145 0; M 33 305; M 145 280; M 145 298;
   M 17 0; M 145 270; M 5 0; M 145 270; M 10 270; M 145 280; M 145 0;
   M 10 270; M 17 0; M 145 270; M 145 278; M 145 0; M 17 0; M 145 314;
   M 43 260; M 145 278; M 145 0; M 17 0; M 145 314; M 145 0; M 145 278;
   M 145 298; M 145 280; M 145 280; M 145 0; M 145 280; M 145 280; M 145 0;
   M 36 304; M 145 280; M 145 278; M 145 315; M 145 298; M 145 298; M 145 280;
   M 145 312; M 145 270; M 145 280; M 145 280; M 43 290; M 145 278; M 145 280;
   M 9 298; M 145 280; M 145 0; M 145 280; M 43 260; M 145 312; M 145 312;
   M 145 315; M 145 278; M 145 278; M 145 280; M 10 270; M 145 312; M 145 280;
   M 43 260; M 145 315; M 145 0; M 145 280; M 145 312; M 145 312; M 145 312;
   M 145 312; M 145 312; M 5 0; M 145 280; M 145 312; M 145 312; M 145 312;
   M 145 312; M 145 312; M 145 312; M 145 312; M 17 0; M 145 312; M 145 280;
   M 145 312; M 145 312; M 145 312; M 145 312; M 145 312; M 145 312;
   M 145 312; M 145 312; M 145 0; M 145 312; M 145 312; M 145 312; M 145 312;
   M 145 312; M 145 312; M 33 305; M 145 278; M 145 280; M 145 312; M 43 260;
   M 145 312; M 10 270; M 145 312; M 145 312; M 36 260; M 145 312; M 145 280;
   M 145 312; M 145 312; M 145 280; M 145 280; M 43 290; M 145 280; M 145 270;
   M 145 280; M 36 260; M 145 0; M 36 0; M 17 0; M 17 0; M 17 0; M 36 0;
   M 145 0; M 17 0; M 40 0; M 36 0; M 145 270; M 36 0; M 145 0; M 145 298;
   M 145 304; M 17 0
  ].

(** Parse states 11700 to 11849. *)
Definition ts_lex_modes_11700 : list TSLexMode :=
  [
   M 36 0; M 36 0; M 40 0; M 36 0; M 36 0; M 17 0; M 36 0; M 40 0; M 36 0;
   M 36 0; M 145 280; M 36 316; M 40 0; M 36 0; M 36 0; M 17 0; M 17 0;
   M 40 0; M 36 0; M 36 0; M 40 0; M 17 0; M 40 0; M 36 0; M 36 0; M 145 280;
   M 36 0; M 145 308; M 40 0; M 36 0; M 36 0; M 36 0; M 17 0; M 40 0; M 36 0;
   M 36 0; M 36 0; M 17 0; M 40 0; M 36 0; M 36 0; M 17 0; M 40 0; M 36 0;
   M 36 0; M 17 0; M 36 290; M 40 0; M 36 0; M 36 0; M 40 0; M 36 0; M 36 0;
   M 17 0; M 17 0; M 17 0; M 17 0; M 40 0; M 36 0; M 36 0; M 145 308;
   M 145 280; M 36 0; M 40 0; M 36 0; M 36 0; M 40 0; M 36 0; M 36 0; M 40 0;
   M 36 0; M 36 0; M 17 0; M 17 0; M 17 0; M 40 0; M 36 0; M 36 0; M 145 280;
   M 145 0; M 145 270; M 145 280; M 40 0; M 36 0; M 36 0; M 145 0; M 145 280;
   M 40 0; M 36 0; M 17 0; M 36 0; M 40 0; M 36 0; M 36 0; M 40 0; M 36 0;
   M 36 0; M 17 0; M 17 0; M 17 0; M 145 305; M 40 0; M 36 0; M 36 0;
   M 145 270; M 17 0; M 145 280; M 40 0; M 36 0; M 36 0; M 43 260; M 17 0;
   M 40 0; M 40 0; M 36 0; M 36 0; M 36 0; M 36 316; M 36 0; M 40 0; M 36 0;
   M 17 0; M 145 270; M 145 280; M 40 0; M 36 0; M 145 305; M 36 0; M 17 0;
   M 145 0; M 17 0; M 40 0; M 145 317; M 145 270; M 36 0; M 17 0; M 17 0;
   M 5 0; M 17 0; M 145 280; M 145 305; M 145 270; M 17 0; M 36 0; M 40 0;
   M 36 0; M 36 0; M 17 0; M 145 298; M 145 274
  ].

(** Parse states 11850 to 11999. *)
Definition ts_lex_modes_11850 : list TSLexMode :=
  [
   M 43 260; M 6 270; M 17 0; M 17 0; M 17 0; M 17 0; M 145 0; M 145 0;
   M 40 0; M 145 270; M 36 0; M 36 0; M 17 0; M 17 0; M 36 0; M 17 0; M 17 0;
   M 17 0; M 17 0; M 17 0; M 17 0; M 145 0; M 17 0; M 17 0; M 17 0; M 17 0;
   M 40 0; M 36 0; M 145 270; M 36 0; M 17 0; M 17 0; M 145 270; M 145 0;
   M 36 0; M 145 280; M 17 0; M 40 0; M 36 0; M 36 0; M 145 280; M 40 0;
   M 36 0; M 17 0; M 17 0; M 145 270; M 145 0; M 145 280; M 40 0; M 145 304;
   M 17 0; M 17 0; M 36 0; M 36 0; M 17 0; M 145 0; M 17 0; M 145 280; M 17 0;
   M 17 0; M 36 0; M 40 0; M 17 0; M 36 0; M 145 0; M 40 0; M 17 0; M 36 0;
   M 17 0; M 17 0; M 17 0; M 145 0; M 17 0; M 17 0; M 36 0; M 40 0; M 17 0;
   M 36 0; M 145 0; M 36 0; M 145 0; M 145 0; M 6 270; M 17 0; M 17 0;
   M 145 287; M 17 0; M 145 0; M 145 318; M 17 0; M 145 0; M 17 0; M 145 319;
   M 145 0; M 145 308; M 40 0; M 36 0; M 17 0; M 17 0; M 40 0; M 36 0;
   M 145 320; M 144 292; M 36 0; M 36 0; M 145 270; M 17 0; M 17 0; M 5 0;
   M 145 280; M 5 0; M 36 0; M 17 0; M 17 0; M 145 298; M 17 0; M 17 0;
   M 40 0; M 36 0; M 145 317; M 17 0; M 40 0; M 145 298; M 36 0; M 145 320;
   M 17 0; M 145 320; M 36 0; M 145 308; M 145 318; M 145 0; M 40 0; M 36 0;
   M 145 280; M 36 0; M 17 0; M 17 0; M 36 316; M 145 260; M 145 318;
   M 145 270; M 145 318; M 36 316; M 40 0; M 145 318; M 36 0; M 145 318;
   M 17 0; M 17 0; M 17 0
  ].

(** Parse states 12000 to 12149. *)
Definition ts_lex_modes_12000 : list TSLexMode :=
  [
   M 36 0; M 17 0; M 40 0; M 36 0; M 17 0; M 36 0; M 36 316; M 17 0;
   M 145 298; M 145 308; M 36 0; M 40 0; M 36 0; M 145 0; M 36 0; M 36 316;
   M 40 0; M 17 0; M 36 0; M 145 0; M 145 0; M 5 0; M 145 319; M 17 0; M 17 0;
   M 145 270; M 5 0; M 36 290; M 40 0; M 17 0; M 145 319; M 36 0; M 145 319;
   M 6 270; M 36 0; M 145 319; M 40 0; M 145 319; M 36 0; M 17 0; M 145 319;
   M 145 0; M 145 270; M 36 0; M 17 0; M 40 0; M 145 280; M 40 0; M 36 0;
   M 17 0; M 145 283; M 145 270; M 21 0; M 145 270; M 145 270; M 145 294;
   M 21 0; M 145 0; M 145 0; M 21 0; M 145 0; M 36 0; M 145 295; M 145 296;
   M 145 301; M 145 295; M 145 0; M 145 301; M 145 0; M 145 0; M 21 0;
   M 145 301; M 145 301; M 145 270; M 145 270; M 145 270; M 5 0; M 145 296;
   M 145 270; M 21 0; M 21 0; M 145 270; M 21 0; M 21 0; M 145 0; M 145 0;
   M 145 0; M 145 308; M 145 294; M 145 294; M 17 298; M 36 0; M 145 0;
   M 145 0; M 145 301; M 145 0; M 145 301; M 145 270; M 145 270; M 145 270;
   M 145 0; M 21 0; M 145 301; M 145 301; M 145 321; M 145 301; M 145 270;
   M 145 301; M 145 295; M 17 0; M 145 294; M 145 295; M 145 294; M 145 0;
   M 145 0; M 145 0; M 145 295; M 36 0; M 21 0; M 145 270; M 145 301;
   M 145 301; M 145 270; M 145 270; M 145 0; M 144 270; M 145 270; M 145 0;
   M 145 295; M 145 295; M 21 0; M 21 0; M 36 0; M 145 301; M 145 301;
   M 145 295; M 21 0; M 21 0; M 21 0; M 144 270; M 145 270; M 21 0; M 21 0;
   M 145 270; M 21 0; M 145 270; M 145 0; M 145 295; M 145 0; M 145 295
  ].

(** Parse states 12150 to 12299. *)
Definition ts_lex_modes_12150 : list TSLexMode :=
  [
   M 145 295; M 145 295; M 145 270; M 21 0; M 145 322; M 21 0; M 17 0;
   M 145 295; M 145 296; M 145 323; M 145 270; M 21 0; M 145 294; M 145 295;
   M 145 270; M 145 295; M 21 0; M 145 295; M 145 295; M 145 0; M 145 270;
   M 145 0; M 145 295; M 145 301; M 145 295; M 21 0; M 145 296; M 145 295;
   M 145 295; M 145 295; M 145 270; M 145 301; M 145 0; M 145 0; M 145 0;
   M 145 295; M 145 295; M 145 0; M 145 301; M 145 301; M 145 0; M 145 294;
   M 145 0; M 145 295; M 145 295; M 145 0; M 145 295; M 145 0; M 21 0;
   M 17 298; M 145 301; M 145 294; M 145 319; M 145 301; M 145 301; M 145 301;
   M 145 0; M 145 301; M 21 0; M 145 295; M 145 301; M 145 301; M 145 301;
   M 145 301; M 145 301; M 21 0; M 145 270; M 21 0; M 145 301; M 145 294;
   M 145 295; M 145 270; M 145 0; M 145 301; M 145 308; M 145 294; M 145 301;
   M 145 301; M 145 294; M 21 0; M 21 0; M 145 0; M 145 0; M 145 301;
   M 145 294; M 145 0; M 17 0; M 145 294; M 21 0; M 145 301; M 145 301;
   M 145 301; M 21 0; M 145 0; M 145 295; M 145 301; M 145 276; M 145 270;
   M 145 301; M 145 295; M 145 0; M 145 294; M 145 0; M 145 294; M 145 308;
   M 145 301; M 21 0; M 145 301; M 145 301; M 36 0; M 145 0; M 145 270;
   M 145 0; M 145 0; M 21 0; M 145 0; M 145 301; M 145 0; M 145 301;
   M 145 301; M 145 301; M 145 301; M 145 0; M 145 270; M 21 0; M 36 0;
   M 145 0; M 145 295; M 145 301; M 145 301; M 145 301; M 21 0; M 145 322;
   M 36 0; M 145 270; M 145 270; M 21 0; M 36 0; M 145 308; M 36 0; M 36 316;
   M 6 0; M 145 314; M 145 0; M 145 270; M 145 270; M 145 270; M 145 0;
   M 144 270; M 145 0
  ].

(** Parse states 12300 to 12449. *)
Definition ts_lex_modes_12300 : list TSLexMode :=
  [
   M 21 0; M 21 0; M 21 0; M 145 270; M 145 322; M 36 0; M 145 0; M 21 0;
   M 145 295; M 36 0; M 145 295; M 145 270; M 144 270; M 145 0; M 36 0;
   M 145 295; M 17 298; M 145 295; M 145 301; M 145 322; M 145 295; M 36 0;
   M 17 0; M 145 270; M 36 0; M 36 0; M 145 283; M 145 294; M 145 322;
   M 145 0; M 36 0; M 145 301; M 36 0; M 36 0; M 145 294; M 145 0; M 145 301;
   M 145 322; M 36 0; M 145 283; M 145 301; M 145 0; M 36 0; M 36 0;
   M 145 295; M 21 0; M 145 322; M 36 0; M 145 295; M 17 298; M 36 0; M 21 0;
   M 145 0; M 36 0; M 17 324; M 145 321; M 145 322; M 145 294; M 145 0;
   M 145 295; M 145 295; M 145 270; M 145 0; M 21 0; M 145 295; M 145 0;
   M 145 0; M 145 295; M 145 0; M 145 308; M 21 0; M 36 0; M 145 295; M 17 0;
   M 145 0; M 145 294; M 145 0; M 145 0; M 145 0; M 145 270; M 145 0;
   M 145 294; M 17 0; M 145 270; M 145 0; M 145 270; M 145 0; M 6 0;
   M 145 270; M 145 294; M 145 294; M 21 0; M 145 0; M 145 270; M 145 0;
   M 145 0; M 21 0; M 145 301; M 21 0; M 145 0; M 21 0; M 145 270; M 145 270;
   M 145 294; M 145 319; M 21 0; M 5 0; M 145 270; M 145 270; M 21 0;
   M 145 294; M 145 0; M 145 294; M 145 295; M 21 0; M 145 270; M 145 270;
   M 145 270; M 21 0; M 145 270; M 145 301; M 36 316; M 145 295; M 145 270;
   M 145 294; M 17 0; M 145 270; M 145 294; M 145 270; M 145 0; M 145 0;
   M 145 270; M 21 0; M 21 0; M 145 270; M 145 270; M 145 0; M 145 294;
   M 145 270; M 145 270; M 145 270; M 145 270; M 21 0; M 145 0; M 21 0;
   M 145 295; M 145 295; M 145 301; M 145 301; M 145 0
  ].

(** Parse states 12450 to 12599. *)
Definition ts_lex_modes_12450 : list TSLexMode :=
  [
   M 17 298; M 21 0; M 145 0; M 145 270; M 145 0; M 145 301; M 145 321;
   M 17 298; M 145 0; M 145 321; M 17 0; M 145 294; M 145 302; M 145 301;
   M 145 0; M 145 303; M 145 0; M 145 303; M 145 301; M 145 294; M 145 303;
   M 17 298; M 145 0; M 145 321; M 145 0; M 145 303; M 145 0; M 145 299;
   M 145 303; M 145 321; M 145 303; M 145 294; M 145 294; M 145 270;
   M 145 319; M 145 303; M 17 0; M 145 321; M 145 270; M 145 0; M 145 270;
   M 17 0; M 145 303; M 145 303; M 145 321; M 145 303; M 145 294; M 145 325;
   M 145 0; M 145 294; M 145 321; M 145 294; M 145 294; M 145 303; M 145 303;
   M 17 0; M 145 301; M 145 294; M 145 0; M 145 0; M 145 0; M 145 299;
   M 145 0; M 145 0; M 145 301; M 145 303; M 17 0; M 145 294; M 145 294;
   M 17 0; M 17 0; M 17 0; M 145 0; M 17 0; M 145 294; M 145 0; M 145 303;
   M 145 0; M 145 302; M 145 295; M 145 0; M 145 321; M 145 0; M 145 0;
   M 17 0; M 145 321; M 145 301; M 145 270; M 145 303; M 145 0; M 145 0;
   M 145 299; M 145 295; M 145 294; M 145 303; M 145 321; M 145 303;
   M 145 303; M 145 303; M 145 270; M 145 303; M 145 0; M 145 299; M 145 0;
   M 145 294; M 145 0; M 17 260; M 17 0; M 145 294; M 145 294; M 145 303;
   M 145 0; M 145 321; M 145 0; M 145 0; M 145 321; M 145 0; M 145 319;
   M 145 294; M 145 299; M 145 0; M 145 299; M 145 294; M 145 0; M 145 0;
   M 145 0; M 145 0; M 145 0; M 145 0; M 145 299; M 145 321; M 145 321;
   M 145 321; M 145 302; M 145 321; M 145 303; M 145 0; M 145 294; M 145 302;
   M 145 270; M 145 0; M 145 321; M 145 302; M 145 0; M 145 270; M 145 302;
   M 145 302; M 145 294; M 145 302; M 17 298
  ].

(** Parse states 12600 to 12749. *)
Definition ts_lex_modes_12600 : list TSLexMode :=
  [
   M 17 0; M 145 294; M 145 302; M 145 0; M 145 294; M 145 0; M 145 0;
   M 145 321; M 145 303; M 145 294; M 145 270; M 145 302; M 145 0; M 145 302;
   M 145 302; M 145 302; M 145 294; M 145 270; M 145 299; M 145 302; M 17 0;
   M 145 299; M 145 299; M 145 294; M 145 302; M 145 270; M 145 0; M 145 302;
   M 145 302; M 145 294; M 145 0; M 145 303; M 145 302; M 145 294; M 145 321;
   M 145 302; M 145 302; M 145 302; M 145 0; M 145 0; M 145 302; M 145 302;
   M 145 0; M 17 0; M 145 294; M 145 0; M 145 295; M 145 302; M 145 321;
   M 145 302; M 145 299; M 145 0; M 145 294; M 145 321; M 145 0; M 145 321;
   M 145 303; M 145 301; M 145 321; M 145 303; M 145 302; M 145 294;
   M 145 302; M 145 294; M 145 294; M 145 0; M 145 294; M 145 0; M 145 294;
   M 145 321; M 17 0; M 145 0; M 17 0; M 17 0; M 145 0; M 145 294; M 145 0;
   M 145 321; M 17 298; M 145 0; M 145 0; M 145 0; M 145 301; M 145 0;
   M 145 0; M 145 294; M 145 299; M 145 321; M 145 321; M 145 294; M 145 319;
   M 145 294; M 145 0; M 145 294; M 145 325; M 145 294; M 145 321; M 145 0;
   M 145 294; M 145 0; M 17 0; M 145 0; M 145 301; M 145 0; M 145 303;
   M 145 0; M 145 0; M 145 0; M 145 299; M 145 299; M 145 0; M 145 270;
   M 145 0; M 145 301; M 145 294; M 145 321; M 145 0; M 145 0; M 145 294;
   M 145 303; M 145 294; M 145 294; M 145 302; M 145 299; M 145 294;
   M 145 294; M 145 302; M 145 0; M 145 0; M 145 0; M 145 294; M 145 294;
   M 145 294; M 145 303; M 145 299; M 145 0; M 145 321; M 145 299; M 145 302;
   M 145 294; M 145 321; M 145 294; M 145 302; M 145 321; M 145 294;
   M 145 303; M 145 0; M 145 0; M 17 0; M 17 0
  ].

(** Parse states 12750 to 12899. *)
Definition ts_lex_modes_12750 : list TSLexMode :=
  [
   M 145 0; M 145 303; M 145 301; M 145 321; M 145 294; M 145 299; M 145 302;
   M 145 321; M 145 295; M 145 0; M 145 294; M 145 299; M 145 294; M 145 0;
   M 145 321; M 145 303; M 145 0; M 145 0; M 17 0; M 145 302; M 145 0;
   M 145 0; M 145 321; M 145 302; M 145 0; M 145 303; M 145 270; M 145 0;
   M 145 0; M 145 303; M 145 303; M 145 0; M 145 319; M 17 0; M 17 0;
   M 145 321; M 145 0; M 145 0; M 145 294; M 145 303; M 145 0; M 145 294;
   M 145 0; M 145 0; M 17 0; M 145 0; M 145 294; M 145 294; M 145 301; M 17 0;
   M 145 303; M 145 0; M 145 0; M 145 301; M 145 294; M 145 294; M 145 0;
   M 145 301; M 145 301; M 145 0; M 145 301; M 145 270; M 145 302; M 145 302;
   M 145 302; M 145 302; M 145 294; M 145 0; M 17 298; M 145 299; M 145 0;
   M 145 303; M 145 294; M 145 303; M 145 324; M 145 0; M 145 299; M 145 294;
   M 145 0; M 145 294; M 145 305; M 145 303; M 145 294; M 145 303; M 145 294;
   M 145 295; M 145 294; M 145 301; M 145 0; M 17 0; M 145 0; M 145 0;
   M 145 294; M 145 0; M 145 301; M 145 301; M 145 303; M 145 0; M 145 0;
   M 145 303; M 145 0; M 145 0; M 145 294; M 145 301; M 17 0; M 145 303;
   M 145 303; M 145 0; M 145 0; M 145 301; M 145 303; M 145 0; M 145 0;
   M 145 294; M 145 299; M 145 0; M 145 0; M 145 301; M 145 299; M 145 301;
   M 145 303; M 145 0; M 145 0; M 145 0; M 145 294; M 145 303; M 145 303;
   M 145 0; M 145 324; M 145 303; M 145 303; M 145 294; M 145 299; M 145 301;
   M 145 0; M 145 0; M 145 303; M 145 302; M 145 303; M 145 294; M 145 0;
   M 145 0; M 5 0; M 145 270; M 145 302; M 145 0; M 145 301; M 145 295;
   M 145 303; M 145 294
  ].

(** Parse states 12900 to 13049. *)
Definition ts_lex_modes_12900 : list TSLexMode :=
  [
   M 145 0; M 145 294; M 145 320; M 145 294; M 145 295; M 145 294; M 145 319;
   M 145 301; M 145 299; M 17 0; M 145 303; M 145 303; M 145 299; M 145 303;
   M 145 303; M 145 303; M 145 0; M 17 0; M 145 0; M 145 0; M 145 303;
   M 145 323; M 145 0; M 145 0; M 145 0; M 145 302; M 145 303; M 145 0;
   M 145 302; M 145 294; M 145 303; M 145 321; M 145 0; M 145 0; M 145 294;
   M 145 302; M 145 0; M 145 301; M 145 0; M 145 321; M 145 0; M 145 301;
   M 145 0; M 145 301; M 145 0; M 145 294; M 145 294; M 145 321; M 145 295;
   M 145 0; M 145 299; M 145 294; M 145 299; M 145 303; M 145 303; M 145 301;
   M 145 303; M 145 294; M 145 321; M 145 294; M 145 0; M 17 0; M 145 295;
   M 145 0; M 145 295; M 17 0; M 145 295; M 145 295; M 145 303; M 145 301;
   M 145 302; M 145 0; M 145 303; M 145 303; M 145 302; M 145 303; M 145 302;
   M 145 302; M 145 301; M 145 302; M 145 295; M 39 0; M 145 0; M 145 0;
   M 145 295; M 145 303; M 145 294; M 145 0; M 145 299; M 145 0; M 145 326;
   M 145 310; M 145 310; M 145 310; M 145 302; M 145 303; M 145 303;
   M 145 327; M 145 327; M 145 310; M 145 303; M 145 302; M 17 0; M 145 310;
   M 145 0; M 145 270; M 145 327; M 145 0; M 145 0; M 145 0; M 145 310;
   M 145 298; M 17 0; M 145 310; M 145 0; M 145 327; M 145 302; M 145 310;
   M 5 0; M 145 0; M 145 310; M 145 0; M 145 0; M 145 310; M 145 299;
   M 145 270; M 145 327; M 145 311; M 145 0; M 145 303; M 145 299; M 145 303;
   M 145 0; M 5 0; M 145 310; M 145 270; M 145 310; M 145 0; M 145 0; M 145 0;
   M 145 0; M 145 0; M 145 0; M 145 327; M 145 0; M 145 0; M 145 310;
   M 145 310; M 145 0; M 145 0
  ].

(** Parse states 13050 to 13199. *)
Definition ts_lex_modes_13050 : list TSLexMode :=
  [
   M 145 270; M 145 310; M 145 310; M 145 310; M 145 0; M 145 0; M 145 310;
   M 145 0; M 145 326; M 145 270; M 145 310; M 145 327; M 145 0; M 145 310;
   M 145 270; M 145 0; M 145 299; M 145 310; M 145 310; M 17 0; M 145 0;
   M 145 298; M 17 0; M 145 310; M 145 310; M 145 327; M 145 270; M 17 0;
   M 17 0; M 145 310; M 145 310; M 145 310; M 145 310; M 145 270; M 145 310;
   M 145 0; M 145 0; M 145 310; M 145 0; M 17 0; M 145 328; M 145 0; M 17 0;
   M 17 0; M 145 310; M 145 0; M 145 0; M 145 0; M 145 310; M 145 0;
   M 145 310; M 17 0; M 145 0; M 145 0; M 145 313; M 145 310; M 145 270;
   M 145 0; M 145 310; M 145 299; M 145 270; M 145 0; M 145 0; M 145 327;
   M 145 310; M 145 0; M 145 0; M 145 0; M 145 0; M 145 313; M 145 270;
   M 145 0; M 145 0; M 145 313; M 145 0; M 145 0; M 145 0; M 145 310;
   M 145 270; M 145 310; M 145 310; M 145 310; M 145 0; M 145 310; M 145 310;
   M 145 310; M 145 310; M 145 270; M 145 0; M 145 298; M 17 0; M 145 270;
   M 145 270; M 17 0; M 145 0; M 145 299; M 145 0; M 5 0; M 145 270; M 145 0;
   M 145 310; M 145 0; M 145 310; M 145 327; M 145 0; M 145 310; M 145 310;
   M 145 313; M 145 310; M 145 310; M 17 0; M 145 0; M 145 0; M 145 0;
   M 145 0; M 145 310; M 145 0; M 145 313; M 145 310; M 145 0; M 145 0;
   M 145 327; M 145 0; M 17 0; M 145 327; M 145 0; M 145 310; M 145 0;
   M 145 310; M 145 302; M 145 310; M 145 310; M 145 0; M 145 303; M 145 0;
   M 145 0; M 145 0; M 145 0; M 17 0; M 145 313; M 145 310; M 145 0; M 145 0;
   M 145 0; M 145 0; M 145 302; M 145 327; M 145 303; M 145 303; M 145 310
  ].

(** Parse states 13200 to 13349. *)
Definition ts_lex_modes_13200 : list TSLexMode :=
  [
   M 145 310; M 145 0; M 145 0; M 145 303; M 145 0; M 145 310; M 145 0;
   M 145 0; M 145 310; M 145 310; M 145 0; M 145 270; M 17 0; M 145 310;
   M 145 310; M 145 299; M 145 0; M 145 310; M 145 310; M 145 310; M 145 310;
   M 145 327; M 145 303; M 145 311; M 145 311; M 145 310; M 145 0; M 145 310;
   M 145 299; M 145 0; M 145 0; M 145 0; M 145 310; M 145 0; M 145 0; M 145 0;
   M 145 0; M 145 0; M 145 0; M 17 0; M 145 303; M 145 270; M 145 0; M 145 0;
   M 145 0; M 145 0; M 145 327; M 145 299; M 145 310; M 145 0; M 145 310;
   M 145 310; M 145 303; M 145 0; M 145 0; M 145 302; M 145 310; M 145 0;
   M 145 310; M 145 0; M 145 0; M 145 270; M 145 310; M 145 0; M 145 0;
   M 145 0; M 145 0; M 145 310; M 145 313; M 145 270; M 145 0; M 145 0;
   M 145 298; M 145 299; M 145 310; M 145 310; M 145 0; M 145 313; M 145 0;
   M 145 0; M 145 0; M 145 0; M 145 311; M 145 299; M 145 0; M 145 0;
   M 145 327; M 145 0; M 145 0; M 145 0; M 145 0; M 145 327; M 145 310;
   M 145 310; M 145 270; M 17 0; M 145 303; M 145 302; M 145 299; M 145 310;
   M 145 0; M 145 270; M 17 0; M 145 0; M 145 0; M 145 303; M 145 310;
   M 145 0; M 145 270; M 145 0; M 145 0; M 145 0; M 145 310; M 145 0;
   M 145 327; M 145 313; M 145 0; M 145 327; M 145 327; M 145 299; M 145 0;
   M 145 311; M 145 310; M 145 0; M 145 313; M 17 0; M 145 310; M 145 310;
   M 145 310; M 145 270; M 145 0; M 145 310; M 145 0; M 145 0; M 145 0;
   M 145 270; M 145 310; M 145 310; M 145 299; M 145 0; M 145 0; M 145 0;
   M 145 0; M 145 310; M 145 310; M 145 310; M 145 0; M 145 0; M 145 0;
   M 145 313
  ].

(** Parse states 13350 to 13499. *)
Definition ts_lex_modes_13350 : list TSLexMode :=
  [
   M 145 310; M 145 0; M 145 270; M 145 310; M 145 0; M 145 0; M 145 299;
   M 145 0; M 145 310; M 145 0; M 145 0; M 145 313; M 145 310; M 145 0;
   M 145 0; M 145 0; M 145 0; M 145 313; M 145 0; M 145 313; M 145 298;
   M 145 299; M 145 310; M 145 0; M 145 310; M 145 0; M 145 0; M 145 299;
   M 145 326; M 145 0; M 145 310; M 145 0; M 145 0; M 145 0; M 145 298;
   M 145 299; M 145 0; M 145 0; M 145 270; M 145 299; M 17 0; M 145 310;
   M 145 270; M 145 310; M 145 0; M 145 0; M 145 299; M 145 0; M 145 0;
   M 145 310; M 145 310; M 145 310; M 145 0; M 145 310; M 145 0; M 145 299;
   M 145 310; M 145 303; M 145 0; M 145 0; M 17 0; M 145 310; M 145 0;
   M 145 0; M 145 0; M 145 270; M 145 310; M 145 270; M 145 310; M 145 299;
   M 145 311; M 145 310; M 145 0; M 145 0; M 145 0; M 145 0; M 145 0; M 145 0;
   M 145 0; M 17 0; M 145 310; M 145 0; M 145 0; M 145 0; M 145 299;
   M 145 299; M 145 0; M 17 0; M 145 310; M 145 310; M 145 310; M 145 310;
   M 145 310; M 145 0; M 145 0; M 145 0; M 145 0; M 145 327; M 145 310;
   M 145 299; M 145 310; M 145 0; M 145 313; M 145 0; M 145 310; M 145 310;
   M 145 270; M 145 0; M 145 0; M 145 0; M 145 0; M 145 0; M 145 0; M 145 0;
   M 145 0; M 145 299; M 145 270; M 145 299; M 145 313; M 145 270; M 145 310;
   M 145 0; M 17 0; M 145 270; M 145 310; M 145 0; M 145 310; M 145 310;
   M 145 299; M 145 299; M 145 0; M 145 327; M 145 0; M 145 0; M 145 310;
   M 145 0; M 145 0; M 145 0; M 145 0; M 145 0; M 145 0; M 145 299; M 145 310;
   M 145 0; M 145 310; M 145 0; M 145 310; M 145 310; M 145 310; M 145 310
  ].

(** Parse states 13500 to 13649. *)
Definition ts_lex_modes_13500 : list TSLexMode :=
  [
   M 145 0; M 145 299; M 145 310; M 145 0; M 145 298; M 145 310; M 145 310;
   M 145 270; M 145 310; M 145 299; M 145 310; M 145 310; M 145 310;
   M 145 310; M 145 310; M 145 0; M 145 310; M 145 310; M 145 0; M 145 310;
   M 145 299; M 145 270; M 145 0; M 145 0; M 145 310; M 145 310; M 145 303;
   M 145 0; M 145 0; M 145 0; M 145 310; M 145 313; M 145 299; M 145 270;
   M 145 299; M 145 310; M 145 310; M 145 310; M 145 311; M 145 0; M 145 311;
   M 145 310; M 17 0; M 145 310; M 145 0; M 145 313; M 145 0; M 145 310;
   M 145 313; M 145 299; M 145 310; M 145 310; M 145 311; M 145 310;
   M 145 310; M 145 0; M 145 313; M 145 0; M 145 0; M 145 0; M 145 313;
   M 145 310; M 145 299; M 145 327; M 145 0; M 145 0; M 145 310; M 145 310;
   M 145 299; M 145 328; M 145 0; M 145 299; M 145 310; M 145 270; M 145 0;
   M 145 0; M 145 311; M 145 310; M 145 310; M 145 0; M 145 310; M 145 0;
   M 145 0; M 145 303; M 145 298; M 145 310; M 145 0; M 145 310; M 145 310;
   M 145 310; M 145 310; M 145 310; M 145 0; M 145 310; M 145 270; M 145 310;
   M 145 0; M 145 310; M 145 313; M 145 0; M 145 310; M 145 311; M 145 0;
   M 145 0; M 145 0; M 145 310; M 145 0; M 145 313; M 145 299; M 145 311;
   M 145 310; M 145 270; M 145 310; M 145 310; M 145 310; M 145 310; M 145 0;
   M 145 0; M 145 310; M 145 310; M 145 0; M 145 327; M 145 303; M 145 0;
   M 145 0; M 145 0; M 145 310; M 39 0; M 145 0; M 145 310; M 145 0; M 145 0;
   M 145 0; M 145 310; M 145 327; M 145 0; M 145 310; M 145 0; M 145 310;
   M 145 0; M 145 311; M 145 310; M 145 328; M 145 327; M 145 310; M 17 0;
   M 145 311; M 145 310; M 145 0; M 145 310
  ].

(** Parse states 13650 to 13799. *)
Definition ts_lex_modes_13650 : list TSLexMode :=
  [
   M 145 310; M 145 310; M 145 0; M 145 0; M 145 0; M 145 310; M 145 0;
   M 145 0; M 145 310; M 145 0; M 145 310; M 145 302; M 145 270; M 17 0;
   M 145 302; M 39 0; M 145 310; M 145 310; M 145 0; M 145 310; M 145 0;
   M 145 311; M 145 0; M 145 270; M 145 0; M 145 0; M 145 313; M 145 0; M 6 0;
   M 145 0; M 145 329; M 17 0; M 145 310; M 145 0; M 145 0; M 145 0; M 145 0;
   M 145 270; M 145 299; M 145 310; M 145 310; M 145 0; M 145 313; M 145 310;
   M 145 0; M 145 0; M 145 0; M 145 0; M 145 327; M 145 0; M 145 310; M 145 0;
   M 145 310; M 145 0; M 145 310; M 145 310; M 145 270; M 145 0; M 145 327;
   M 17 0; M 145 310; M 145 0; M 145 310; M 145 311; M 145 310; M 145 310;
   M 145 0; M 145 327; M 17 0; M 145 0; M 145 270; M 145 310; M 145 311;
   M 17 0; M 145 310; M 145 0; M 145 0; M 145 0; M 145 0; M 17 0; M 145 310;
   M 145 310; M 145 311; M 145 329; M 145 0; M 145 0; M 145 310; M 145 0;
   M 145 0; M 145 0; M 145 0; M 145 0; M 17 0; M 145 299; M 145 0; M 145 310;
   M 145 310; M 145 0; M 145 0; M 145 0; M 145 0; M 145 270; M 145 0; M 145 0;
   M 145 0; M 145 0; M 145 310; M 145 0; M 145 0; M 145 310; M 145 270;
   M 145 327; M 145 0; M 145 299; M 145 270; M 145 329; M 145 310; M 145 311;
   M 145 0; M 145 0; M 145 0; M 145 0; M 145 0; M 145 310; M 145 329;
   M 145 299; M 145 310; M 145 303; M 145 0; M 145 0; M 145 0; M 145 0;
   M 145 327; M 17 0; M 145 310; M 145 0; M 145 0; M 145 0; M 145 0; M 145 0;
   M 5 0; M 145 310; M 145 0; M 145 329; M 145 311; M 145 310; M 145 0;
   M 145 0; M 145 0; M 145 0
  ].

(** Parse states 13800 to 13949. *)
Definition ts_lex_modes_13800 : list TSLexMode :=
  [
   M 5 0; M 145 299; M 145 310; M 145 310; M 145 0; M 145 0; M 145 0;
   M 145 303; M 145 0; M 145 302; M 145 299; M 145 0; M 145 0; M 145 0;
   M 145 0; M 145 302; M 145 327; M 145 0; M 145 310; M 17 0; M 145 329;
   M 145 310; M 145 311; M 145 310; M 145 0; M 145 0; M 145 0; M 145 0;
   M 145 0; M 145 0; M 145 299; M 145 0; M 145 0; M 145 0; M 145 328;
   M 145 310; M 145 311; M 145 310; M 145 0; M 145 0; M 145 0; M 145 0;
   M 145 310; M 145 310; M 145 0; M 145 310; M 145 329; M 145 310; M 145 0;
   M 145 0; M 145 0; M 145 0; M 145 310; M 145 0; M 145 329; M 145 299;
   M 17 0; M 145 313; M 145 0; M 145 0; M 17 0; M 17 0; M 145 310; M 145 310;
   M 145 310; M 145 0; M 145 310; M 145 270; M 17 0; M 145 310; M 145 329;
   M 145 310; M 17 0; M 145 0; M 145 299; M 145 310; M 145 0; M 145 313;
   M 145 313; M 145 0; M 145 329; M 145 270; M 145 310; M 145 310; M 145 313;
   M 145 329; M 145 327; M 145 0; M 145 310; M 145 329; M 145 0; M 145 0;
   M 17 0; M 145 310; M 145 329; M 17 0; M 145 0; M 145 0; M 145 310;
   M 145 329; M 145 310; M 145 310; M 145 0; M 145 0; M 145 0; M 145 329;
   M 145 310; M 145 310; M 145 0; M 145 0; M 145 0; M 145 329; M 145 313;
   M 145 0; M 145 310; M 145 313; M 145 329; M 145 310; M 145 0; M 145 0;
   M 145 303; M 145 310; M 145 329; M 145 310; M 145 302; M 145 0; M 145 329;
   M 145 310; M 17 0; M 145 311; M 17 0; M 145 329; M 145 0; M 145 0;
   M 145 310; M 145 310; M 145 329; M 145 0; M 145 327; M 145 310; M 145 329;
   M 145 0; M 145 327; M 145 329; M 145 0; M 145 310; M 145 310; M 145 329;
   M 145 0; M 145 299
  ].

(** Parse states 13950 to 14099. *)
Definition ts_lex_modes_13950 : list TSLexMode :=
  [
   M 145 310; M 145 329; M 145 0; M 145 0; M 145 329; M 17 0; M 145 310;
   M 145 303; M 145 329; M 145 310; M 145 0; M 145 0; M 145 329; M 145 310;
   M 145 0; M 145 327; M 145 329; M 145 0; M 145 310; M 145 310; M 145 329;
   M 145 310; M 145 0; M 145 0; M 145 313; M 145 310; M 145 313; M 145 0;
   M 145 310; M 145 0; M 145 303; M 145 310; M 145 310; M 145 0; M 145 0;
   M 145 310; M 145 0; M 145 270; M 145 0; M 145 329; M 5 0; M 145 310;
   M 145 270; M 145 270; M 145 326; M 145 0; M 145 303; M 145 310; M 145 310;
   M 145 270; M 145 0; M 145 303; M 145 327; M 145 0; M 145 313; M 145 310;
   M 145 329; M 145 310; M 145 303; M 145 310; M 145 303; M 145 303; M 145 0;
   M 145 310; M 17 0; M 145 0; M 145 0; M 145 329; M 145 311; M 145 270;
   M 145 310; M 145 270; M 145 303; M 145 303; M 145 0; M 145 329; M 145 302;
   M 145 0; M 145 270; M 145 0; M 145 310; M 145 310; M 145 310; M 145 310;
   M 145 310; M 145 0; M 145 327; M 145 329; M 145 311; M 145 313; M 145 0;
   M 145 270; M 145 310; M 145 270; M 145 270; M 145 0; M 145 310; M 145 329;
   M 145 0; M 145 313; M 145 0; M 145 329; M 145 327; M 145 310; M 145 313;
   M 145 310; M 145 303; M 145 303; M 145 310; M 145 0; M 145 0; M 145 313;
   M 145 0; M 145 311; M 145 303; M 145 310; M 145 303; M 145 303; M 145 310;
   M 145 303; M 145 310; M 145 310; M 145 310; M 145 303; M 145 303; M 145 0;
   M 145 0; M 6 330; M 145 270; M 145 0; M 145 0; M 145 310; M 145 303;
   M 145 0; M 145 0; M 145 0; M 145 327; M 145 302; M 145 303; M 145 303;
   M 145 311; M 145 0; M 145 303; M 145 303; M 145 303; M 145 303; M 145 303;
   M 145 310; M 145 303; M 145 310
  ].

(** Parse states 14100 to 14249. *)
Definition ts_lex_modes_14100 : list TSLexMode :=
  [
   M 145 303; M 145 303; M 145 310; M 145 303; M 145 310; M 145 303;
   M 145 310; M 145 303; M 145 303; M 145 311; M 145 0; M 145 303; M 145 303;
   M 145 303; M 145 303; M 145 303; M 145 310; M 145 327; M 145 323;
   M 145 313; M 145 311; M 145 0; M 5 0; M 145 323; M 145 0; M 145 323;
   M 145 313; M 145 310; M 145 0; M 145 0; M 145 313; M 145 0; M 145 313;
   M 145 313; M 145 313; M 145 323; M 145 323; M 5 0; M 145 0; M 145 311;
   M 145 313; M 145 323; M 145 313; M 145 0; M 145 0; M 145 313; M 145 331;
   M 145 298; M 145 310; M 145 313; M 145 313; M 145 0; M 145 0; M 145 0;
   M 145 0; M 145 0; M 145 313; M 145 313; M 145 323; M 145 0; M 145 0;
   M 145 313; M 145 313; M 145 0; M 145 313; M 145 313; M 145 313; M 145 332;
   M 145 310; M 145 323; M 145 298; M 145 310; M 145 0; M 145 270; M 145 323;
   M 145 313; M 145 313; M 145 323; M 145 323; M 145 0; M 145 323; M 145 0;
   M 145 313; M 145 313; M 145 313; M 145 312; M 145 323; M 145 0; M 145 323;
   M 145 313; M 145 313; M 145 313; M 145 323; M 145 323; M 145 0; M 145 0;
   M 145 313; M 145 0; M 145 313; M 145 323; M 145 313; M 145 323; M 145 323;
   M 145 0; M 145 313; M 145 0; M 145 313; M 145 0; M 145 270; M 145 310;
   M 145 313; M 145 313; M 145 0; M 145 0; M 145 0; M 145 313; M 145 313;
   M 145 313; M 145 313; M 145 323; M 145 0; M 145 313; M 145 323; M 145 323;
   M 145 312; M 145 0; M 145 0; M 145 313; M 145 0; M 145 313; M 145 313;
   M 145 313; M 145 323; M 145 0; M 145 313; M 145 323; M 145 0; M 145 312;
   M 5 0; M 145 313; M 145 323; M 145 313; M 145 0; M 145 313; M 145 311;
   M 145 270; M 145 0; M 145 0; M 6 0; M 145 312
  ].

(** Parse states 14250 to 14399. *)
Definition ts_lex_modes_14250 : list TSLexMode :=
  [
   M 145 313; M 145 313; M 145 332; M 145 313; M 145 0; M 145 332; M 145 313;
   M 145 313; M 145 0; M 145 0; M 145 0; M 145 313; M 145 0; M 145 298;
   M 145 313; M 145 313; M 145 313; M 145 313; M 145 313; M 145 311; M 145 0;
   M 145 0; M 145 0; M 6 0; M 145 0; M 145 313; M 145 0; M 145 332; M 145 313;
   M 145 313; M 145 313; M 145 313; M 145 313; M 145 313; M 145 312;
   M 145 332; M 145 0; M 145 313; M 145 0; M 145 0; M 145 0; M 145 0; M 145 0;
   M 145 0; M 145 0; M 145 0; M 145 313; M 145 0; M 145 313; M 145 313;
   M 145 0; M 145 0; M 145 313; M 145 0; M 145 0; M 145 0; M 145 0; M 145 0;
   M 145 0; M 145 0; M 5 0; M 145 0; M 145 330; M 145 313; M 145 0; M 145 0;
   M 145 0; M 145 313; M 145 313; M 145 313; M 145 313; M 145 0; M 145 0;
   M 145 313; M 145 313; M 145 313; M 145 313; M 145 0; M 145 313; M 145 313;
   M 145 0; M 145 313; M 145 0; M 145 0; M 145 0; M 145 312; M 145 0;
   M 145 313; M 145 0; M 145 0; M 145 0; M 145 0; M 145 313; M 145 313;
   M 145 0; M 145 0; M 145 0; M 145 0; M 145 310; M 145 313; M 145 313;
   M 145 313; M 145 0; M 145 0; M 5 0; M 145 313; M 145 0; M 145 0; M 5 0;
   M 145 0; M 145 313; M 145 0; M 145 0; M 145 313; M 145 0; M 145 0; M 145 0;
   M 145 0; M 145 313; M 145 313; M 145 0; M 145 313; M 145 0; M 145 313;
   M 145 313; M 145 0; M 145 313; M 145 270; M 145 313; M 145 0; M 6 0;
   M 145 0; M 145 0; M 145 0; M 145 0; M 145 333; M 145 313; M 145 313;
   M 145 0; M 145 312; M 145 0; M 145 0; M 145 313; M 145 0; M 145 0; M 145 0;
   M 145 0; M 145 0; M 145 311; M 145 0
  ].

(** Parse states 14400 to 14549. *)
Definition ts_lex_modes_14400 : list TSLexMode :=
  [
   M 145 0; M 145 0; M 145 313; M 145 0; M 145 0; M 145 0; M 145 0; M 145 0;
   M 145 0; M 145 0; M 145 313; M 145 313; M 145 0; M 145 313; M 145 0;
   M 145 0; M 145 330; M 145 0; M 145 270; M 145 0; M 145 0; M 145 0; M 5 0;
   M 145 0; M 145 0; M 145 313; M 145 0; M 145 0; M 145 313; M 145 313;
   M 145 0; M 145 313; M 145 313; M 145 0; M 145 313; M 145 313; M 145 0;
   M 145 0; M 145 0; M 145 312; M 145 0; M 145 312; M 145 0; M 145 313;
   M 145 313; M 145 0; M 145 313; M 145 313; M 145 298; M 145 0; M 145 332;
   M 145 0; M 145 312; M 145 0; M 145 0; M 145 313; M 145 0; M 145 313;
   M 145 332; M 145 313; M 145 313; M 145 313; M 145 313; M 145 313; M 5 0;
   M 145 0; M 145 0; M 145 313; M 145 313; M 145 0; M 145 310; M 145 313;
   M 145 313; M 145 0; M 145 312; M 145 0; M 145 313; M 5 0; M 145 0;
   M 145 313; M 145 0; M 145 0; M 145 0; M 145 313; M 145 313; M 145 313;
   M 145 0; M 145 312; M 145 0; M 145 313; M 145 313; M 145 0; M 145 313;
   M 145 0; M 145 313; M 145 313; M 145 0; M 145 270; M 145 313; M 145 0;
   M 6 0; M 145 0; M 145 0; M 145 313; M 145 0; M 145 0; M 145 0; M 145 313;
   M 145 313; M 145 313; M 145 0; M 145 332; M 145 313; M 145 0; M 145 0;
   M 145 311; M 145 0; M 145 313; M 145 0; M 145 0; M 145 0; M 145 313;
   M 145 0; M 145 0; M 145 0; M 5 0; M 145 313; M 145 313; M 145 0; M 145 0;
   M 145 0; M 145 0; M 145 0; M 145 0; M 145 0; M 145 0; M 145 0; M 145 0;
   M 145 313; M 145 313; M 145 0; M 145 312; M 145 313; M 145 313; M 145 0;
   M 145 0; M 145 298; M 145 332; M 145 0; M 145 0
  ].

(** Parse states 14550 to 14699. *)
Definition ts_lex_modes_14550 : list TSLexMode :=
  [
   M 145 0; M 145 0; M 145 270; M 145 0; M 145 0; M 145 0; M 5 0; M 145 313;
   M 145 313; M 145 313; M 145 313; M 145 0; M 145 313; M 145 313; M 145 0;
   M 145 0; M 145 0; M 145 313; M 145 0; M 145 313; M 145 0; M 145 0;
   M 145 313; M 145 0; M 5 0; M 145 0; M 145 0; M 145 313; M 145 0; M 145 0;
   M 145 313; M 145 0; M 145 0; M 145 0; M 145 0; M 145 0; M 145 310;
   M 145 313; M 145 313; M 145 312; M 145 0; M 145 0; M 145 313; M 145 313;
   M 145 313; M 145 0; M 145 0; M 145 0; M 145 0; M 145 0; M 145 313; M 145 0;
   M 145 313; M 145 0; M 145 0; M 145 313; M 145 313; M 145 313; M 145 313;
   M 145 313; M 145 313; M 145 0; M 145 0; M 145 270; M 145 0; M 145 0; M 6 0;
   M 145 0; M 145 0; M 145 0; M 145 0; M 145 313; M 145 270; M 145 0;
   M 145 313; M 145 313; M 145 313; M 145 0; M 145 311; M 145 0; M 145 313;
   M 145 0; M 145 0; M 145 0; M 145 0; M 145 313; M 145 313; M 145 323;
   M 145 0; M 145 0; M 145 0; M 145 0; M 145 0; M 145 0; M 145 0; M 145 0;
   M 145 0; M 145 0; M 145 0; M 145 313; M 145 0; M 145 0; M 145 0; M 145 313;
   M 145 312; M 145 0; M 145 0; M 145 313; M 145 0; M 145 313; M 145 313;
   M 145 313; M 145 0; M 145 0; M 145 0; M 145 0; M 145 313; M 145 0; M 145 0;
   M 145 313; M 145 0; M 145 0; M 145 0; M 145 313; M 145 0; M 145 0; M 145 0;
   M 145 0; M 145 0; M 145 310; M 145 313; M 145 313; M 145 0; M 145 0;
   M 145 0; M 145 0; M 145 0; M 145 313; M 145 313; M 145 0; M 145 332;
   M 145 313; M 145 0; M 145 0; M 145 313; M 145 313; M 145 313; M 145 270;
   M 145 0; M 145 313
  ].

(** Parse states 14700 to 14849. *)
Definition ts_lex_modes_14700 : list TSLexMode :=
  [
   M 6 0; M 145 0; M 145 298; M 145 310; M 145 0; M 145 313; M 145 313;
   M 145 332; M 145 311; M 145 313; M 145 332; M 145 310; M 145 0; M 145 313;
   M 5 0; M 145 0; M 145 313; M 145 0; M 145 298; M 145 313; M 145 312;
   M 145 0; M 145 0; M 145 313; M 145 310; M 145 0; M 145 0; M 145 312;
   M 145 313; M 145 0; M 145 0; M 145 270; M 145 0; M 145 313; M 6 0;
   M 145 313; M 145 313; M 145 270; M 145 0; M 145 0; M 145 0; M 145 0;
   M 145 311; M 145 0; M 145 313; M 145 0; M 145 313; M 145 313; M 145 0;
   M 145 313; M 145 0; M 5 0; M 145 313; M 145 0; M 145 0; M 145 313;
   M 145 313; M 145 0; M 145 313; M 145 0; M 145 298; M 145 312; M 145 332;
   M 145 313; M 145 0; M 145 270; M 145 332; M 145 0; M 6 0; M 145 0;
   M 145 311; M 145 0; M 145 313; M 145 298; M 145 0; M 145 0; M 145 311;
   M 145 0; M 145 0; M 145 0; M 145 332; M 145 313; M 145 0; M 145 0; M 145 0;
   M 145 313; M 145 313; M 145 0; M 145 0; M 145 0; M 145 0; M 145 0;
   M 145 313; M 145 313; M 145 0; M 145 0; M 6 0; M 145 0; M 145 313; M 145 0;
   M 145 313; M 6 0; M 145 0; M 145 0; M 145 0; M 145 313; M 145 313;
   M 145 312; M 145 311; M 145 0; M 145 313; M 145 313; M 145 313; M 145 0;
   M 145 332; M 145 0; M 145 298; M 5 0; M 145 313; M 145 0; M 145 0; M 145 0;
   M 145 313; M 145 0; M 145 0; M 145 0; M 145 0; M 145 0; M 6 0; M 145 0;
   M 145 332; M 145 0; M 145 0; M 145 0; M 145 0; M 145 311; M 145 313;
   M 145 0; M 145 0; M 145 313; M 145 313; M 145 313; M 145 313; M 145 311;
   M 145 0; M 145 312; M 145 0; M 145 311; M 145 313; M 145 0
  ].

(** Parse states 14850 to 14999. *)
Definition ts_lex_modes_14850 : list TSLexMode :=
  [
   M 145 0; M 145 0; M 145 0; M 145 0; M 145 312; M 6 0; M 145 0; M 145 313;
   M 145 0; M 145 0; M 145 0; M 145 0; M 145 311; M 145 312; M 145 0;
   M 145 313; M 145 0; M 145 0; M 145 0; M 145 0; M 145 0; M 145 0; M 145 0;
   M 145 0; M 145 313; M 145 313; M 145 313; M 145 0; M 145 313; M 145 0;
   M 145 270; M 145 0; M 6 0; M 145 0; M 145 312; M 145 0; M 145 313;
   M 145 313; M 145 0; M 145 311; M 145 313; M 145 313; M 145 0; M 145 0;
   M 145 310; M 145 0; M 145 313; M 145 311; M 145 0; M 145 313; M 145 313;
   M 145 312; M 145 312; M 145 313; M 145 313; M 145 313; M 145 313; M 6 0;
   M 145 0; M 145 0; M 145 0; M 145 0; M 145 0; M 145 313; M 145 311; M 145 0;
   M 145 0; M 145 313; M 145 332; M 145 0; M 145 0; M 145 0; M 145 0;
   M 145 310; M 145 313; M 145 313; M 145 0; M 145 0; M 145 0; M 145 0;
   M 145 0; M 5 0; M 6 0; M 145 0; M 145 310; M 145 313; M 145 313; M 145 0;
   M 145 0; M 145 311; M 145 0; M 145 0; M 145 0; M 145 0; M 145 0; M 145 313;
   M 145 0; M 145 0; M 145 0; M 145 0; M 145 312; M 145 0; M 145 313;
   M 145 313; M 145 0; M 145 0; M 145 0; M 6 0; M 145 0; M 145 0; M 145 313;
   M 145 0; M 6 0; M 145 0; M 145 311; M 145 0; M 145 0; M 145 311; M 145 0;
   M 145 0; M 145 0; M 145 0; M 145 0; M 145 0; M 145 0; M 145 270; M 145 0;
   M 145 313; M 145 313; M 145 313; M 145 313; M 145 0; M 6 0; M 5 0;
   M 145 313; M 145 313; M 145 0; M 145 313; M 145 0; M 145 311; M 145 0;
   M 145 0; M 145 313; M 145 0; M 145 0; M 145 0; M 145 0; M 145 0; M 145 0;
   M 145 0
  ].

(** Parse states 15000 to 15149. *)
Definition ts_lex_modes_15000 : list TSLexMode :=
  [
   M 145 312; M 145 313; M 145 313; M 145 313; M 5 0; M 145 313; M 145 313;
   M 6 0; M 145 0; M 145 0; M 145 0; M 145 313; M 145 0; M 145 0; M 145 311;
   M 145 0; M 145 313; M 145 0; M 145 0; M 145 0; M 145 313; M 145 313;
   M 145 0; M 145 0; M 145 0; M 145 0; M 145 313; M 145 313; M 145 0; M 145 0;
   M 145 313; M 145 313; M 6 0; M 145 0; M 145 313; M 145 0; M 145 313;
   M 145 310; M 145 313; M 145 311; M 145 0; M 145 313; M 145 0; M 145 0;
   M 145 313; M 145 0; M 145 0; M 145 0; M 145 0; M 145 0; M 145 313;
   M 145 312; M 145 0; M 6 0; M 145 313; M 145 313; M 145 313; M 145 310;
   M 145 0; M 145 0; M 145 311; M 145 0; M 145 0; M 145 0; M 145 0; M 145 0;
   M 145 0; M 145 0; M 145 0; M 5 0; M 145 0; M 145 310; M 145 312; M 145 298;
   M 6 0; M 145 313; M 145 0; M 145 313; M 145 310; M 145 0; M 145 0;
   M 145 311; M 145 0; M 145 0; M 145 313; M 145 0; M 145 313; M 145 313;
   M 145 0; M 145 0; M 145 313; M 145 0; M 145 0; M 145 0; M 145 313; M 6 0;
   M 145 0; M 145 0; M 145 0; M 145 0; M 145 0; M 145 0; M 145 311; M 145 313;
   M 5 0; M 145 0; M 145 0; M 145 0; M 145 312; M 145 0; M 145 313; M 145 0;
   M 145 0; M 145 0; M 145 0; M 145 0; M 6 0; M 145 0; M 145 0; M 145 0;
   M 145 0; M 145 313; M 145 0; M 145 311; M 145 0; M 145 312; M 145 313;
   M 145 0; M 145 0; M 145 0; M 145 0; M 145 0; M 145 0; M 145 0; M 145 0;
   M 145 0; M 145 0; M 6 0; M 145 0; M 145 313; M 145 0; M 145 0; M 145 313;
   M 145 0; M 145 311; M 145 313; M 145 313; M 145 0; M 145 0; M 145 0
  ].

(** Parse states 15150 to 15299. *)
Definition ts_lex_modes_15150 : list TSLexMode :=
  [
   M 145 0; M 145 0; M 145 0; M 145 0; M 145 310; M 145 332; M 145 313;
   M 145 0; M 6 0; M 145 0; M 145 313; M 145 330; M 145 0; M 145 0; M 145 313;
   M 145 311; M 145 313; M 145 312; M 145 313; M 145 313; M 145 0; M 145 310;
   M 145 0; M 145 0; M 145 313; M 145 0; M 5 0; M 145 270; M 145 0; M 6 0;
   M 145 0; M 145 0; M 145 0; M 145 313; M 145 313; M 145 0; M 145 311;
   M 145 0; M 145 0; M 145 313; M 145 313; M 145 0; M 145 313; M 145 0;
   M 145 313; M 145 313; M 145 0; M 145 312; M 145 313; M 145 313; M 6 0;
   M 145 0; M 145 0; M 145 0; M 145 0; M 145 313; M 145 313; M 145 311;
   M 145 313; M 145 0; M 145 0; M 145 0; M 145 312; M 145 0; M 145 312;
   M 145 313; M 145 0; M 145 0; M 145 313; M 145 0; M 6 0; M 145 0; M 145 313;
   M 145 0; M 145 0; M 145 0; M 145 0; M 145 0; M 145 312; M 145 0; M 6 0;
   M 145 313; M 145 0; M 145 0; M 145 313; M 145 0; M 145 331; M 145 0;
   M 145 0; M 145 0; M 6 0; M 145 0; M 145 0; M 145 311; M 145 313; M 145 0;
   M 145 313; M 145 0; M 145 0; M 145 313; M 6 0; M 145 298; M 145 0;
   M 145 313; M 145 0; M 145 313; M 145 313; M 145 311; M 145 313; M 145 0;
   M 6 0; M 145 0; M 145 0; M 145 313; M 145 0; M 145 312; M 145 0; M 145 0;
   M 145 0; M 6 0; M 145 313; M 145 0; M 145 0; M 145 0; M 145 298; M 145 0;
   M 145 0; M 145 0; M 6 0; M 145 0; M 145 0; M 145 312; M 145 0; M 145 0;
   M 145 0; M 145 313; M 145 0; M 6 0; M 145 0; M 145 313; M 145 0; M 145 0;
   M 145 0; M 145 0; M 145 0; M 145 0; M 6 0; M 145 0; M 145 0; M 145 0
  ].

(** Parse states 15300 to 15449. *)
Definition ts_lex_modes_15300 : list TSLexMode :=
  [
   M 145 312; M 145 0; M 145 0; M 145 0; M 145 0; M 6 0; M 145 313; M 145 313;
   M 145 313; M 145 0; M 145 313; M 145 0; M 145 0; M 6 0; M 145 0; M 145 313;
   M 145 312; M 145 313; M 145 0; M 145 313; M 145 0; M 6 0; M 145 0;
   M 145 313; M 145 313; M 145 0; M 145 0; M 145 0; M 145 0; M 6 0; M 145 0;
   M 145 0; M 145 312; M 145 0; M 145 0; M 145 0; M 145 0; M 6 0; M 145 0;
   M 145 0; M 145 0; M 145 323; M 145 0; M 145 0; M 145 0; M 6 0; M 145 0;
   M 145 0; M 145 0; M 145 0; M 145 0; M 145 0; M 145 313; M 6 0; M 145 0;
   M 145 311; M 145 0; M 145 0; M 145 0; M 145 0; M 145 313; M 6 0; M 145 0;
   M 145 0; M 145 313; M 145 311; M 145 0; M 145 313; M 145 0; M 6 0;
   M 145 313; M 5 0; M 145 313; M 145 313; M 145 313; M 145 313; M 145 0;
   M 6 0; M 145 0; M 145 0; M 145 0; M 145 0; M 145 312; M 145 0; M 145 313;
   M 6 0; M 145 0; M 145 0; M 145 313; M 145 313; M 145 0; M 145 0; M 145 0;
   M 6 0; M 145 0; M 145 0; M 5 0; M 145 313; M 145 0; M 145 0; M 145 0;
   M 6 0; M 145 313; M 145 0; M 145 0; M 145 0; M 145 0; M 145 0; M 145 0;
   M 145 0; M 145 0; M 5 0; M 145 0; M 145 313; M 145 313; M 145 270;
   M 145 270; M 145 0; M 145 0; M 145 313; M 145 0; M 145 0; M 145 0; M 5 0;
   M 145 313; M 145 313; M 145 312; M 145 0; M 145 313; M 145 0; M 145 0;
   M 145 0; M 145 313; M 145 0; M 145 313; M 145 298; M 145 311; M 145 313;
   M 145 0; M 145 313; M 145 0; M 145 313; M 145 0; M 145 313; M 145 0;
   M 145 0; M 145 0; M 145 313; M 145 270; M 145 313
  ].

(** Parse states 15450 to 15599. *)
Definition ts_lex_modes_15450 : list TSLexMode :=
  [
   M 145 313; M 145 0; M 6 0; M 145 0; M 145 0; M 145 0; M 145 0; M 145 313;
   M 145 0; M 145 0; M 145 0; M 145 313; M 145 313; M 145 313; M 145 311;
   M 145 0; M 145 313; M 145 313; M 145 0; M 145 0; M 145 0; M 145 313;
   M 145 0; M 145 0; M 145 0; M 145 310; M 145 0; M 145 0; M 145 0; M 145 0;
   M 145 270; M 145 313; M 145 312; M 145 0; M 145 270; M 145 313; M 145 270;
   M 145 312; M 145 0; M 145 0; M 145 313; M 145 0; M 145 270; M 145 270;
   M 145 0; M 145 311; M 145 0; M 145 313; M 145 313; M 145 0; M 145 0;
   M 145 0; M 145 313; M 145 313; M 145 313; M 145 0; M 145 0; M 145 313;
   M 145 313; M 145 313; M 145 270; M 145 0; M 145 0; M 145 311; M 145 313;
   M 145 313; M 145 0; M 145 0; M 145 0; M 145 0; M 145 270; M 145 0;
   M 145 313; M 145 0; M 145 0; M 145 313; M 145 313; M 145 332; M 145 298;
   M 145 0; M 145 332; M 145 312; M 145 270; M 145 270; M 5 0; M 145 313;
   M 145 0; M 145 313; M 145 331; M 145 298; M 145 0; M 145 313; M 145 313;
   M 145 313; M 145 0; M 145 313; M 145 313; M 5 0; M 145 313; M 145 313;
   M 145 0; M 145 312; M 145 313; M 145 311; M 145 313; M 145 0; M 145 313;
   M 145 0; M 145 313; M 145 0; M 145 313; M 145 0; M 145 313; M 145 312;
   M 145 323; M 145 0; M 145 0; M 145 313; M 145 0; M 145 0; M 145 270;
   M 145 270; M 145 0; M 145 313; M 145 313; M 145 0; M 145 0; M 145 0;
   M 145 313; M 145 313; M 145 313; M 145 313; M 145 313; M 145 313;
   M 145 270; M 145 332; M 145 0; M 145 313; M 5 0; M 145 0; M 145 0;
   M 145 311; M 145 313; M 145 313; M 145 0; M 145 298; M 145 0; M 145 0;
   M 145 0; M 145 0
  ].

(** Parse states 15600 to 15749. *)
Definition ts_lex_modes_15600 : list TSLexMode :=
  [
   M 145 0; M 145 0; M 145 0; M 145 0; M 145 0; M 145 0; M 145 270; M 145 270;
   M 145 312; M 145 0; M 145 313; M 145 0; M 145 0; M 145 0; M 145 0; M 145 0;
   M 145 0; M 145 0; M 145 0; M 145 0; M 145 0; M 145 0; M 145 313; M 145 313;
   M 145 332; M 145 0; M 145 0; M 145 311; M 145 313; M 145 313; M 145 333;
   M 145 0; M 5 0; M 145 310; M 145 313; M 145 0; M 145 0; M 145 313;
   M 145 313; M 145 0; M 145 0; M 145 270; M 145 270; M 145 0; M 145 313;
   M 145 0; M 145 0; M 145 313; M 145 313; M 145 0; M 145 0; M 145 298;
   M 145 0; M 145 0; M 145 0; M 145 298; M 145 0; M 145 313; M 145 0; M 5 0;
   M 145 313; M 145 313; M 145 311; M 145 323; M 145 313; M 145 0; M 145 313;
   M 145 332; M 145 313; M 145 0; M 145 0; M 5 0; M 145 313; M 145 313;
   M 145 313; M 145 0; M 145 270; M 145 0; M 145 0; M 145 0; M 5 0; M 145 0;
   M 145 0; M 145 298; M 6 0; M 145 313; M 145 0; M 145 311; M 145 298;
   M 145 313; M 145 313; M 145 0; M 145 0; M 145 0; M 145 313; M 145 0;
   M 145 270; M 145 0; M 145 313; M 145 313; M 145 0; M 145 298; M 145 0;
   M 145 270; M 145 0; M 145 313; M 145 0; M 145 0; M 145 0; M 6 0; M 145 270;
   M 145 0; M 145 313; M 145 0; M 145 0; M 145 0; M 145 0; M 145 0; M 145 0;
   M 145 0; M 145 0; M 145 0; M 145 0; M 145 298; M 145 332; M 145 313;
   M 145 313; M 145 323; M 145 313; M 145 313; M 145 313; M 145 313; M 5 0;
   M 145 0; M 145 0; M 145 298; M 145 313; M 145 0; M 145 310; M 145 313;
   M 5 0; M 145 0; M 145 313; M 145 313; M 145 312; M 145 313; M 145 0;
   M 145 333; M 145 312; M 145 313
  ].

(** Parse states 15750 to 15899. *)
Definition ts_lex_modes_15750 : list TSLexMode :=
  [
   M 145 313; M 145 313; M 145 0; M 145 312; M 145 0; M 145 0; M 145 312;
   M 145 0; M 145 0; M 145 0; M 145 313; M 145 0; M 145 0; M 145 270; M 145 0;
   M 145 0; M 6 0; M 145 0; M 145 0; M 145 0; M 145 0; M 145 0; M 145 0;
   M 145 0; M 145 0; M 145 0; M 145 0; M 145 313; M 145 313; M 145 0;
   M 145 313; M 145 0; M 145 0; M 145 313; M 145 0; M 145 313; M 145 0;
   M 145 313; M 145 0; M 145 0; M 145 270; M 145 0; M 145 0; M 145 313;
   M 145 0; M 145 0; M 145 313; M 145 0; M 145 311; M 5 0; M 145 0; M 145 0;
   M 145 0; M 145 0; M 145 0; M 145 313; M 145 313; M 145 0; M 145 0; M 145 0;
   M 145 0; M 145 0; M 145 0; M 145 0; M 145 0; M 145 313; M 145 313;
   M 145 270; M 145 0; M 145 0; M 145 332; M 145 0; M 145 0; M 145 0; M 145 0;
   M 145 313; M 145 0; M 145 0; M 145 0; M 145 313; M 145 313; M 145 313;
   M 145 0; M 145 0; M 145 313; M 145 0; M 145 0; M 145 313; M 145 0; M 145 0;
   M 145 0; M 145 0; M 5 0; M 145 0; M 145 0; M 145 313; M 145 0; M 145 331;
   M 145 310; M 145 298; M 145 0; M 145 0; M 145 0; M 145 0; M 145 0; M 145 0;
   M 145 323; M 145 0; M 145 0; M 145 0; M 145 0; M 145 323; M 145 313;
   M 145 332; M 145 313; M 145 0; M 145 312; M 145 298; M 145 0; M 145 313;
   M 145 313; M 145 0; M 145 332; M 145 313; M 145 310; M 145 311; M 145 323;
   M 145 0; M 145 313; M 145 313; M 145 313; M 145 0; M 145 0; M 145 0;
   M 145 313; M 145 313; M 145 323; M 145 313; M 145 313; M 145 310; M 145 0;
   M 145 0; M 145 313; M 145 270; M 145 323; M 145 0; M 145 311; M 145 0;
   M 145 0; M 145 313
  ].

(** Parse states 15900 to 16006. *)
Definition ts_lex_modes_15900 : list TSLexMode :=
  [
   M 145 0; M 145 0; M 145 313; M 145 313; M 145 310; M 145 0; M 145 0;
   M 145 0; M 145 332; M 145 323; M 145 323; M 145 313; M 145 313; M 145 310;
   M 145 298; M 145 0; M 145 310; M 145 0; M 145 332; M 145 333; M 145 313;
   M 145 313; M 145 313; M 145 313; M 145 312; M 145 0; M 145 0; M 145 270;
   M 145 313; M 145 0; M 145 313; M 145 0; M 145 310; M 145 310; M 145 0;
   M 145 313; M 145 313; M 145 0; M 145 313; M 145 332; M 145 313; M 145 313;
   M 145 298; M 145 0; M 145 313; M 145 313; M 145 0; M 145 0; M 145 313;
   M 145 332; M 145 0; M 145 0; M 145 0; M 145 270; M 145 312; M 145 313;
   M 145 313; M 145 313; M 145 313; M 145 270; M 145 0; M 145 313; M 145 311;
   M 145 313; M 145 0; M 145 0; M 145 310; M 145 313; M 145 323; M 145 323;
   M 145 0; M 145 313; M 145 313; M 145 0; M 145 313; M 145 0; M 145 0;
   M 145 313; M 145 0; M 145 0; M 145 313; M 145 0; M 145 270; M 145 313;
   M 145 0; M 6 0; M 145 0; M 145 0; M 145 313; M 145 313; M 145 313;
   M 145 313; M 145 0; M 145 0; M 145 0; M 145 310; M 145 0; M 145 0; M 145 0;
   M 145 0; M 145 323; M 145 0; M 145 313; M 145 0; M 145 313; M 145 0;
   M 145 313
  ].

Definition ts_lex_modes : list TSLexMode :=
  ts_lex_modes_0 ++ ts_lex_modes_150 ++ ts_lex_modes_300 ++
  ts_lex_modes_450 ++ ts_lex_modes_600 ++ ts_lex_modes_750 ++
  ts_lex_modes_900 ++ ts_lex_modes_1050 ++ ts_lex_modes_1200 ++
  ts_lex_modes_1350 ++ ts_lex_modes_1500 ++ ts_lex_modes_1650 ++
  ts_lex_modes_1800 ++ ts_lex_modes_1950 ++ ts_lex_modes_2100 ++
  ts_lex_modes_2250 ++ ts_lex_modes_2400 ++ ts_lex_modes_2550 ++
  ts_lex_modes_2700 ++ ts_lex_modes_2850 ++ ts_lex_modes_3000 ++
  ts_lex_modes_3150 ++ ts_lex_modes_3300 ++ ts_lex_modes_3450 ++
  ts_lex_modes_3600 ++ ts_lex_modes_3750 ++ ts_lex_modes_3900 ++
  ts_lex_modes_4050 ++ ts_lex_modes_4200 ++ ts_lex_modes_4350 ++
  ts_lex_modes_4500 ++ ts_lex_modes_4650 ++ ts_lex_modes_4800 ++
  ts_lex_modes_4950 ++ ts_lex_modes_5100 ++ ts_lex_modes_5250 ++
  ts_lex_modes_5400 ++ ts_lex_modes_5550 ++ ts_lex_modes_5700 ++
  ts_lex_modes_5850 ++ ts_lex_modes_6000 ++ ts_lex_modes_6150 ++
  ts_lex_modes_6300 ++ ts_lex_modes_6450 ++ ts_lex_modes_6600 ++
  ts_lex_modes_6750 ++ ts_lex_modes_6900 ++ ts_lex_modes_7050 ++
  ts_lex_modes_7200 ++ ts_lex_modes_7350 ++ ts_lex_modes_7500 ++
  ts_lex_modes_7650 ++ ts_lex_modes_7800 ++ ts_lex_modes_7950 ++
  ts_lex_modes_8100 ++ ts_lex_modes_8250 ++ ts_lex_modes_8400 ++
  ts_lex_modes_8550 ++ ts_lex_modes_8700 ++ ts_lex_modes_8850 ++
  ts_lex_modes_9000 ++ ts_lex_modes_9150 ++ ts_lex_modes_9300 ++
  ts_lex_modes_9450 ++ ts_lex_modes_9600 ++ ts_lex_modes_9750 ++
  ts_lex_modes_9900 ++ ts_lex_modes_10050 ++ ts_lex_modes_10200 ++
  ts_lex_modes_10350 ++ ts_lex_modes_10500 ++ ts_lex_modes_10650 ++
  ts_lex_modes_10800 ++ ts_lex_modes_10950 ++ ts_lex_modes_11100 ++
  ts_lex_modes_11250 ++ ts_lex_modes_11400 ++ ts_lex_modes_11550 ++
  ts_lex_modes_11700 ++ ts_lex_modes_11850 ++ ts_lex_modes_12000 ++
  ts_lex_modes_12150 ++ ts_lex_modes_12300 ++ ts_lex_modes_12450 ++
  ts_lex_modes_12600 ++ ts_lex_modes_12750 ++ ts_lex_modes_12900 ++
  ts_lex_modes_13050 ++ ts_lex_modes_13200 ++ ts_lex_modes_13350 ++
  ts_lex_modes_13500 ++ ts_lex_modes_13650 ++ ts_lex_modes_13800 ++
  ts_lex_modes_13950 ++ ts_lex_modes_14100 ++ ts_lex_modes_14250 ++
  ts_lex_modes_14400 ++ ts_lex_modes_14550 ++ ts_lex_modes_14700 ++
  ts_lex_modes_14850 ++ ts_lex_modes_15000 ++ ts_lex_modes_15150 ++
  ts_lex_modes_15300 ++ ts_lex_modes_15450 ++ ts_lex_modes_15600 ++
  ts_lex_modes_15750 ++ ts_lex_modes_15900.
