(* ===== verification/Fields.v ===== *)
(** * The field, alias and primary-state tables of [parser.c]

    For a node built by production [p], the runtime names the children of the
    node by the entries of [ts_field_map_entries] in the slice
    [ts_field_map_slices[p]], and renames its children by the row
    [ts_alias_sequences[p]], in which 0 is no renaming.
    [ts_non_terminal_alias_map] lists the names a non-terminal can have, and
    [ts_primary_state_ids] maps each parse state to the first state with the
    same items.  The tables are transcribed initializer by initializer. *)

From S2P Require Import Prelude.
From S2P Require Import Symbols.

(** An array of [n] elements whose initializer gives some elements; the others
    are the zero value [d]. *)
Definition designated {A} (n : nat) (d : A) (inits : list (nat * A)) : list A :=
  foldl (λ a '(k, v), <[k:=v]> a) (replicate n d) inits.

(** An array of unknown bound whose initializer consists of runs of elements,
    each at a given index. *)
Definition designated_runs {A} (d : A) (runs : list (Z * list A)) : list A :=
  foldl (λ a '(k, es), take (Z.to_nat k) (resize (Z.to_nat k `max` length a) d a) ++ es
      ++ drop (Z.to_nat k + length es) a) [] runs.

Definition FIELD_COUNT : nat := 39.
Definition MAX_ALIAS_SEQUENCE_LENGTH : nat := 10.
Definition PRODUCTION_ID_COUNT : nat := 307.

(** ** Fields *)

Inductive ts_field :=
  | field__dummy
  | field_address
  | field_args
  | field_assign
  | field_attribute
  | field_body
  | field_condition
  | field_defaultValue
  | field_dispid
  | field_else
  | field_end
  | field_entity
  | field_except
  | field_exception
  | field_finally
  | field_getter
  | field_guid
  | field_header
  | field_implements
  | field_index
  | field_iterable
  | field_iterator
  | field_label
  | field_lhs
  | field_local
  | field_name
  | field_operand
  | field_operator
  | field_parent
  | field_resultName
  | field_rhs
  | field_setter
  | field_start
  | field_stored
  | field_then
  | field_try
  | field_type
  | field_value
  | field_variable.

Definition field_number (f : ts_field) : nat :=
  match f with
  | field__dummy => 1
  | field_address => 2
  | field_args => 3
  | field_assign => 4
  | field_attribute => 5
  | field_body => 6
  | field_condition => 7
  | field_defaultValue => 8
  | field_dispid => 9
  | field_else => 10
  | field_end => 11
  | field_entity => 12
  | field_except => 13
  | field_exception => 14
  | field_finally => 15
  | field_getter => 16
  | field_guid => 17
  | field_header => 18
  | field_implements => 19
  | field_index => 20
  | field_iterable => 21
  | field_iterator => 22
  | field_label => 23
  | field_lhs => 24
  | field_local => 25
  | field_name => 26
  | field_operand => 27
  | field_operator => 28
  | field_parent => 29
  | field_resultName => 30
  | field_rhs => 31
  | field_setter => 32
  | field_start => 33
  | field_stored => 34
  | field_then => 35
  | field_try => 36
  | field_type => 37
  | field_value => 38
  | field_variable => 39
  end.

(** The fields in the order of their numbers. *)
Definition all_fields : list ts_field :=
  [field__dummy;
   field_address;
   field_args;
   field_assign;
   field_attribute;
   field_body;
   field_condition;
   field_defaultValue;
   field_dispid;
   field_else;
   field_end;
   field_entity;
   field_except;
   field_exception;
   field_finally;
   field_getter;
   field_guid;
   field_header;
   field_implements;
   field_index;
   field_iterable;
   field_iterator;
   field_label;
   field_lhs;
   field_local;
   field_name;
   field_operand;
   field_operator;
   field_parent;
   field_resultName;
   field_rhs;
   field_setter;
   field_start;
   field_stored;
   field_then;
   field_try;
   field_type;
   field_value;
   field_variable].

#[export] Instance ts_field_eq_dec : EqDecision ts_field.
Proof. solve_decision. Defined.

(** Entry 0 is [NULL]. *)
Definition ts_field_names : list (option string) :=
  None ::
  [Some "_dummy";
   Some "address";
   Some "args";
   Some "assign";
   Some "attribute";
   Some "body";
   Some "condition";
   Some "defaultValue";
   Some "dispid";
   Some "else";
   Some "end";
   Some "entity";
   Some "except";
   Some "exception";
   Some "finally";
   Some "getter";
   Some "guid";
   Some "header";
   Some "implements";
   Some "index";
   Some "iterable";
   Some "iterator";
   Some "label";
   Some "lhs";
   Some "local";
   Some "name";
   Some "operand";
   Some "operator";
   Some "parent";
   Some "resultName";
   Some "rhs";
   Some "setter";
   Some "start";
   Some "stored";
   Some "then";
   Some "try";
   Some "type";
   Some "value";
   Some "variable"].

Record TSFieldMapSlice := MkSlice { slice_index : Z; slice_length : Z }.

(** A field identifier is the number of a field. *)
Record TSFieldMapEntry := MkEntry { field_id : ts_field; child_index : Z; inherited : bool }.

#[local] Abbreviation S := MkSlice (only parsing).

Definition ts_field_map_slices : list TSFieldMapSlice :=
  designated PRODUCTION_ID_COUNT (S 0 0)
  [
   (1%nat, S 0 5); (2%nat, S 5 6); (6%nat, S 11 1); (7%nat, S 12 3); (8%nat, S 15 2);
   (9%nat, S 17 5); (10%nat, S 22 6); (11%nat, S 28 1); (12%nat, S 29 1); (13%nat, S 29 1);
   (14%nat, S 30 2); (15%nat, S 32 1); (16%nat, S 33 2); (19%nat, S 35 1); (20%nat, S 35 1);
   (21%nat, S 36 3); (22%nat, S 39 1); (23%nat, S 40 6); (24%nat, S 46 1); (25%nat, S 47 3);
   (26%nat, S 50 2); (27%nat, S 52 2); (28%nat, S 54 2); (29%nat, S 56 2); (30%nat, S 58 3);
   (31%nat, S 61 2); (32%nat, S 63 2); (33%nat, S 65 2); (34%nat, S 67 2); (35%nat, S 67 2);
   (36%nat, S 69 2); (37%nat, S 69 2); (38%nat, S 71 1); (39%nat, S 72 1); (40%nat, S 73 1);
   (41%nat, S 74 1); (42%nat, S 75 1); (43%nat, S 76 1); (44%nat, S 73 1); (45%nat, S 77 2);
   (46%nat, S 79 2); (48%nat, S 81 1); (49%nat, S 82 3); (50%nat, S 85 2); (51%nat, S 87 2);
   (52%nat, S 89 6); (53%nat, S 95 2); (54%nat, S 97 1); (55%nat, S 98 2); (56%nat, S 100 1);
   (57%nat, S 101 2); (58%nat, S 103 2); (59%nat, S 105 2); (60%nat, S 107 2);
   (61%nat, S 109 2); (62%nat, S 111 3); (63%nat, S 114 3); (64%nat, S 117 1);
   (65%nat, S 118 1); (66%nat, S 119 2); (67%nat, S 121 1); (68%nat, S 122 3);
   (69%nat, S 125 3); (70%nat, S 128 3); (71%nat, S 131 3); (72%nat, S 134 1);
   (73%nat, S 135 2); (74%nat, S 135 2); (75%nat, S 137 3); (76%nat, S 137 3);
   (77%nat, S 140 2); (78%nat, S 142 2); (79%nat, S 144 2); (80%nat, S 107 2);
   (82%nat, S 146 2); (83%nat, S 148 2); (84%nat, S 150 2); (85%nat, S 152 2);
   (86%nat, S 154 1); (87%nat, S 155 2); (88%nat, S 157 2); (89%nat, S 159 2);
   (90%nat, S 161 4); (91%nat, S 165 2); (92%nat, S 167 3); (94%nat, S 170 2);
   (95%nat, S 170 2); (96%nat, S 172 1); (98%nat, S 173 1); (99%nat, S 174 1);
   (100%nat, S 175 1); (101%nat, S 176 1); (102%nat, S 177 1); (103%nat, S 178 1);
   (104%nat, S 179 1); (105%nat, S 180 8); (106%nat, S 188 14); (107%nat, S 202 4);
   (108%nat, S 206 4); (109%nat, S 210 4); (110%nat, S 214 2); (111%nat, S 216 2);
   (112%nat, S 218 2); (113%nat, S 220 2); (114%nat, S 222 3); (115%nat, S 225 3);
   (116%nat, S 228 3); (117%nat, S 231 3); (118%nat, S 234 3); (119%nat, S 237 3);
   (120%nat, S 240 4); (121%nat, S 244 1); (122%nat, S 245 1); (123%nat, S 246 2);
   (124%nat, S 248 3); (125%nat, S 251 3); (126%nat, S 254 2); (127%nat, S 256 4);
   (128%nat, S 260 4); (129%nat, S 264 3); (130%nat, S 267 4); (131%nat, S 271 2);
   (132%nat, S 273 3); (133%nat, S 276 2); (134%nat, S 278 2); (135%nat, S 280 3);
   (136%nat, S 280 3); (137%nat, S 283 3); (138%nat, S 283 3); (139%nat, S 286 2);
   (140%nat, S 288 3); (141%nat, S 291 3); (142%nat, S 294 3); (143%nat, S 297 3);
   (144%nat, S 300 3); (145%nat, S 303 3); (146%nat, S 306 3); (147%nat, S 309 3);
   (148%nat, S 312 3); (150%nat, S 315 3); (151%nat, S 315 3); (152%nat, S 309 3);
   (153%nat, S 119 2); (154%nat, S 318 3); (155%nat, S 318 3); (156%nat, S 321 2);
   (157%nat, S 323 1); (158%nat, S 324 3); (160%nat, S 327 8); (161%nat, S 335 2);
   (162%nat, S 337 9); (163%nat, S 346 9); (164%nat, S 355 1); (165%nat, S 356 2);
   (166%nat, S 358 3); (167%nat, S 361 3); (168%nat, S 364 3); (169%nat, S 367 3);
   (170%nat, S 370 3); (171%nat, S 373 3); (172%nat, S 376 4); (173%nat, S 380 4);
   (174%nat, S 384 4); (175%nat, S 388 4); (176%nat, S 392 4); (177%nat, S 396 2);
   (178%nat, S 398 1); (179%nat, S 399 2); (180%nat, S 401 4); (181%nat, S 405 2);
   (182%nat, S 407 2); (183%nat, S 409 4); (184%nat, S 413 5); (185%nat, S 418 4);
   (186%nat, S 422 4); (187%nat, S 426 3); (188%nat, S 429 3); (189%nat, S 432 4);
   (190%nat, S 432 4); (191%nat, S 436 3); (192%nat, S 439 2); (193%nat, S 441 3);
   (194%nat, S 444 4); (195%nat, S 448 4); (196%nat, S 452 4); (197%nat, S 456 4);
   (198%nat, S 456 4); (199%nat, S 248 3); (200%nat, S 273 3); (201%nat, S 460 3);
   (202%nat, S 460 3); (203%nat, S 463 4); (204%nat, S 467 4); (205%nat, S 463 4);
   (206%nat, S 467 4); (207%nat, S 471 3); (208%nat, S 474 2); (209%nat, S 476 3);
   (210%nat, S 479 3); (211%nat, S 482 4); (212%nat, S 486 9); (213%nat, S 495 9);
   (214%nat, S 504 9); (215%nat, S 513 10); (216%nat, S 523 8); (217%nat, S 531 2);
   (218%nat, S 533 3); (219%nat, S 536 3); (220%nat, S 539 3); (221%nat, S 542 4);
   (222%nat, S 546 4); (223%nat, S 550 4); (224%nat, S 554 4); (225%nat, S 558 5);
   (226%nat, S 563 5); (227%nat, S 568 2); (228%nat, S 570 1); (229%nat, S 571 1);
   (230%nat, S 572 5); (231%nat, S 577 5); (232%nat, S 582 5); (233%nat, S 587 3);
   (234%nat, S 590 4); (235%nat, S 594 4); (236%nat, S 598 4); (237%nat, S 602 5);
   (238%nat, S 607 4); (239%nat, S 611 3); (240%nat, S 611 3); (241%nat, S 607 4);
   (242%nat, S 614 4); (243%nat, S 618 4); (244%nat, S 614 4); (245%nat, S 618 4);
   (246%nat, S 622 5); (247%nat, S 622 5); (248%nat, S 627 4); (249%nat, S 631 3);
   (250%nat, S 634 4); (251%nat, S 638 4); (252%nat, S 642 2); (253%nat, S 644 3);
   (254%nat, S 647 3); (255%nat, S 650 9); (256%nat, S 659 10); (257%nat, S 669 10);
   (258%nat, S 679 10); (259%nat, S 689 9); (260%nat, S 698 9); (261%nat, S 707 4);
   (262%nat, S 711 4); (263%nat, S 715 4); (264%nat, S 719 5); (265%nat, S 724 2);
   (266%nat, S 726 3); (267%nat, S 729 3); (268%nat, S 732 6); (269%nat, S 738 4);
   (270%nat, S 742 5); (271%nat, S 747 5); (272%nat, S 752 5); (273%nat, S 757 3);
   (274%nat, S 757 3); (275%nat, S 760 5); (276%nat, S 760 5); (277%nat, S 765 4);
   (278%nat, S 765 4); (279%nat, S 769 4); (280%nat, S 773 2); (281%nat, S 775 5);
   (282%nat, S 780 3); (283%nat, S 783 4); (284%nat, S 787 4); (285%nat, S 791 10);
   (286%nat, S 801 10); (287%nat, S 811 11); (288%nat, S 822 9); (289%nat, S 831 10);
   (290%nat, S 841 5); (291%nat, S 846 3); (292%nat, S 849 4); (293%nat, S 853 6);
   (294%nat, S 859 4); (295%nat, S 859 4); (296%nat, S 863 3); (297%nat, S 866 4);
   (298%nat, S 870 2); (299%nat, S 872 5); (300%nat, S 877 11); (301%nat, S 888 10);
   (302%nat, S 898 10); (303%nat, S 908 4); (304%nat, S 912 3); (305%nat, S 915 11);
   (306%nat, S 926 4)
  ].

#[local] Abbreviation E f c := (MkEntry f c false) (only parsing).
#[local] Abbreviation I f c := (MkEntry f c true) (only parsing).

(** Entries 0 to 88. *)
Definition ts_field_map_entries_0 : list (Z * list TSFieldMapEntry) :=
  [
   (0, [I field_args 0; I field_assign 0; I field_attribute 0; I field_name 0; I field_type 0]);
   (5, [I field_args 0; I field_assign 0; I field_attribute 0; I field_name 0;
     I field_resultName 0; I field_type 0]);
   (11, [E field_name 0]);
   (12, [I field_body 1; E field_header 0; I field_local 1]);
   (15, [I field_body 0; I field_local 0]);
   (17, [I field_args 1; I field_assign 1; I field_attribute 1; I field_name 1; I field_type 1]);
   (22, [I field_args 1; I field_assign 1; I field_attribute 1; I field_name 1;
     I field_resultName 1; I field_type 1]);
   (28, [E field_name 1]);
   (29, [E field_body 1]);
   (30, [E field_operand 1; E field_operator 0]);
   (32, [E field_exception 1]);
   (33, [E field_operand 0; E field_operator 1]);
   (35, [E field_body 0]);
   (36, [I field_body 1; E field_local 0; I field_local 1]);
   (39, [I field_attribute 0]);
   (40, [I field_args 0; I field_assign 0; I field_attribute 0; I field_attribute 2;
     I field_name 0; I field_type 0]);
   (46, [E field_name 2]);
   (47, [E field_lhs 0; E field_operator 1; E field_rhs 2]);
   (50, [E field_name 1; E field_resultName 2]);
   (52, [I field_attribute 3; E field_name 1]);
   (54, [I field_args 0; I field_entity 0]);
   (56, [I field_operand 0; I field_operator 0]);
   (58, [I field_lhs 0; I field_operator 0; I field_rhs 0]);
   (61, [E field_assign 2; E field_name 1]);
   (63, [E field_args 2; E field_name 1]);
   (65, [E field_defaultValue 2; E field_name 1]);
   (67, [E field_body 2; E field_local 1]);
   (69, [E field_args 1; E field_body 2]);
   (71, [E field_condition 1]);
   (72, [E field_condition 2]);
   (73, [E field_entity 0]);
   (74, [E field_except 1]);
   (75, [E field_finally 1]);
   (76, [E field_entity 1]);
   (77, [I field_entity 0; I field_entity 1]);
   (79, [E field_defaultValue 1; E field_name 0]);
   (81, [E field_header 1]);
   (82, [I field_body 3; E field_header 1; I field_local 3]);
   (85, [I field_header 0; I field_header 1]);
   (87, [I field_body 1; I field_local 1])
  ].

(** Entries 89 to 173. *)
Definition ts_field_map_entries_89 : list (Z * list TSFieldMapEntry) :=
  [
   (89, [I field_args 0; I field_assign 0; I field_attribute 0; I field_attribute 3;
     I field_name 0; I field_type 0]);
   (95, [E field_dispid 0; E field_dispid 1]);
   (97, [E field_attribute 0]);
   (98, [I field_attribute 0; I field_attribute 1]);
   (100, [E field_name 3]);
   (101, [I field_attribute 4; E field_name 2]);
   (103, [E field_assign 3; E field_name 2]);
   (105, [E field_args 3; E field_name 2]);
   (107, [E field_args 2; E field_entity 0]);
   (109, [E field_name 0; E field_name 1]);
   (111, [I field_attribute 4; E field_name 1; E field_resultName 2]);
   (114, [E field_assign 3; E field_name 1; E field_resultName 2]);
   (117, [E field__dummy 0]);
   (118, [E field_args 1]);
   (119, [E field_name 1; E field_type 3]);
   (121, [E field_value 0]);
   (122, [E field_assign 2; I field_attribute 4; E field_name 1]);
   (125, [E field_args 2; E field_name 1; E field_resultName 3]);
   (128, [E field_args 2; I field_attribute 4; E field_name 1]);
   (131, [E field_args 2; E field_assign 3; E field_name 1]);
   (134, [E field_label 0]);
   (135, [E field_body 3; E field_type 2]);
   (137, [E field_args 1; E field_body 3; E field_local 2]);
   (140, [E field_condition 1; E field_then 3]);
   (142, [E field_address 3; E field_exception 1]);
   (144, [E field_body 1; E field_condition 3]);
   (146, [E field_except 1; E field_except 2]);
   (148, [E field_finally 1; E field_finally 2]);
   (150, [E field_except 2; E field_try 1]);
   (152, [E field_finally 2; E field_try 1]);
   (154, [E field_type 3]);
   (155, [E field_body 3; E field_condition 1]);
   (157, [E field_body 3; E field_entity 1]);
   (159, [I field_entity 1; E field_entity 2]);
   (161, [E field_lhs 0; E field_operator 1; E field_operator 2; E field_rhs 3]);
   (165, [E field_name 2; E field_resultName 3]);
   (167, [I field_attribute 3; E field_defaultValue 1; E field_name 0]);
   (170, [E field_name 0; E field_type 2]);
   (172, [E field_guid 1]);
   (173, [E field_getter 1])
  ].

(** Entries 174 to 290. *)
Definition ts_field_map_entries_174 : list (Z * list TSFieldMapEntry) :=
  [
   (174, [E field_setter 1]);
   (175, [E field_implements 1]);
   (176, [E field_defaultValue 1]);
   (177, [E field_stored 1]);
   (178, [E field_index 1]);
   (179, [E field_dispid 1]);
   (180, [I field_defaultValue 2; I field_dispid 2; I field_getter 2; I field_implements 2;
     I field_index 2; E field_name 1; I field_setter 2; I field_stored 2]);
   (188, [I field_defaultValue 0; I field_defaultValue 1; I field_dispid 0; I field_dispid 1;
     I field_getter 0; I field_getter 1; I field_implements 0; I field_implements 1;
     I field_index 0; I field_index 1; I field_setter 0; I field_setter 1; I field_stored 0;
     I field_stored 1]);
   (202, [I field_body 4; E field_header 1; I field_header 2; I field_local 4]);
   (206, [I field_body 1; I field_body 2; I field_local 1; I field_local 2]);
   (210, [I field_body 0; I field_body 1; I field_local 0; I field_local 1]);
   (214, [I field_attribute 5; E field_name 3]);
   (216, [E field_assign 4; E field_name 3]);
   (218, [E field_args 4; E field_name 3]);
   (220, [E field_name 2; E field_type 4]);
   (222, [E field_assign 3; I field_attribute 5; E field_name 2]);
   (225, [E field_args 3; I field_attribute 5; E field_name 2]);
   (228, [E field_args 3; E field_assign 4; E field_name 2]);
   (231, [E field_name 0; E field_type 1; E field_type 2]);
   (234, [E field_defaultValue 2; E field_name 0; E field_name 1]);
   (237, [E field_name 1; E field_resultName 2; E field_type 4]);
   (240, [E field_assign 3; I field_attribute 5; E field_name 1; E field_resultName 2]);
   (244, [I field_attribute 1]);
   (245, [E field_type 2]);
   (246, [E field_name 0; E field_value 1]);
   (248, [I field_attribute 5; E field_name 1; E field_type 3]);
   (251, [E field_assign 4; E field_name 1; E field_type 3]);
   (254, [E field_name 1; E field_name 2]);
   (256, [E field_args 2; I field_attribute 5; E field_name 1; E field_resultName 3]);
   (260, [E field_args 2; E field_assign 4; E field_name 1; E field_resultName 3]);
   (264, [E field_args 2; E field_name 1; E field_type 4]);
   (267, [E field_args 2; E field_assign 3; I field_attribute 5; E field_name 1]);
   (271, [E field_body 1; E field_label 0]);
   (273, [E field_defaultValue 4; E field_name 1; E field_type 3]);
   (276, [E field_end 3; E field_start 1]);
   (278, [E field_iterable 3; E field_iterator 1]);
   (280, [E field_body 4; E field_local 3; E field_type 2]);
   (283, [E field_args 1; E field_body 4; E field_type 3]);
   (286, [E field_condition 1; E field_else 4]);
   (288, [E field_except 2; E field_except 3; E field_try 1])
  ].

(** Entries 291 to 425. *)
Definition ts_field_map_entries_291 : list (Z * list TSFieldMapEntry) :=
  [
   (291, [E field_finally 2; E field_finally 3; E field_try 1]);
   (294, [E field_body 4; I field_entity 1; E field_entity 2]);
   (297, [E field_args 2; E field_args 3; E field_entity 0]);
   (300, [I field_attribute 5; E field_name 2; E field_resultName 3]);
   (303, [E field_assign 4; E field_name 2; E field_resultName 3]);
   (306, [E field_args 3; E field_name 2; E field_resultName 4]);
   (309, [E field_defaultValue 3; E field_name 0; E field_type 2]);
   (312, [I field_attribute 4; E field_defaultValue 2; E field_name 1]);
   (315, [I field_attribute 4; E field_name 0; E field_type 2]);
   (318, [E field_name 0; E field_name 1; E field_type 3]);
   (321, [E field_parent 1; E field_parent 2]);
   (323, [E field_guid 2]);
   (324, [E field_name 0; E field_type 2; E field_type 3]);
   (327, [I field_defaultValue 3; I field_dispid 3; I field_getter 3; I field_implements 3;
     I field_index 3; E field_name 2; I field_setter 3; I field_stored 3]);
   (335, [E field_implements 1; E field_implements 2]);
   (337, [E field_args 2; I field_defaultValue 3; I field_dispid 3; I field_getter 3;
     I field_implements 3; I field_index 3; E field_name 1; I field_setter 3; I field_stored 3]);
   (346, [I field_attribute 4; I field_defaultValue 2; I field_dispid 2; I field_getter 2;
     I field_implements 2; I field_index 2; E field_name 1; I field_setter 2; I field_stored 2]);
   (355, [E field_attribute 1]);
   (356, [E field_name 3; E field_type 5]);
   (358, [E field_assign 4; I field_attribute 6; E field_name 3]);
   (361, [E field_args 4; I field_attribute 6; E field_name 3]);
   (364, [E field_args 4; E field_assign 5; E field_name 3]);
   (367, [I field_attribute 6; E field_name 2; E field_type 4]);
   (370, [E field_assign 5; E field_name 2; E field_type 4]);
   (373, [E field_args 3; E field_name 2; E field_type 5]);
   (376, [E field_args 3; E field_assign 4; I field_attribute 6; E field_name 2]);
   (380, [E field_defaultValue 3; E field_name 0; E field_type 1; E field_type 2]);
   (384, [E field_name 0; E field_name 1; E field_type 2; E field_type 3]);
   (388, [I field_attribute 6; E field_name 1; E field_resultName 2; E field_type 4]);
   (392, [E field_assign 5; E field_name 1; E field_resultName 2; E field_type 4]);
   (396, [I field_attribute 1; I field_attribute 2]);
   (398, [E field_args 3]);
   (399, [E field_args 1; E field_type 3]);
   (401, [E field_assign 4; I field_attribute 6; E field_name 1; E field_type 3]);
   (405, [E field_name 2; E field_name 3]);
   (407, [E field_name 0; E field_value 2]);
   (409, [E field_args 2; E field_name 1; E field_resultName 3; E field_type 5]);
   (413, [E field_args 2; E field_assign 4; I field_attribute 6; E field_name 1;
     E field_resultName 3]);
   (418, [E field_args 2; I field_attribute 6; E field_name 1; E field_type 4]);
   (422, [E field_args 2; E field_assign 5; E field_name 1; E field_type 4])
  ].

(** Entries 426 to 589. *)
Definition ts_field_map_entries_426 : list (Z * list TSFieldMapEntry) :=
  [
   (426, [E field_body 5; E field_end 3; E field_start 1]);
   (429, [E field_body 5; E field_iterable 3; E field_iterator 1]);
   (432, [E field_args 1; E field_body 5; E field_local 4; E field_type 3]);
   (436, [E field_condition 1; E field_else 5; E field_then 3]);
   (439, [E field_body 3; E field_exception 1]);
   (441, [E field_name 2; E field_resultName 3; E field_type 5]);
   (444, [E field_assign 4; I field_attribute 6; E field_name 2; E field_resultName 3]);
   (448, [E field_args 3; I field_attribute 6; E field_name 2; E field_resultName 4]);
   (452, [E field_args 3; E field_assign 5; E field_name 2; E field_resultName 4]);
   (456, [I field_attribute 5; E field_defaultValue 3; E field_name 0; E field_type 2]);
   (460, [E field_name 1; E field_name 2; E field_type 4]);
   (463, [I field_attribute 5; E field_name 0; E field_name 1; E field_type 3]);
   (467, [E field_defaultValue 4; E field_name 0; E field_name 1; E field_type 3]);
   (471, [E field_name 1; E field_type 3; E field_type 4]);
   (474, [E field_parent 2; E field_parent 3]);
   (476, [E field_parent 1; E field_parent 2; E field_parent 3]);
   (479, [E field_guid 3; E field_parent 1; E field_parent 2]);
   (482, [I field_attribute 5; E field_name 0; E field_type 2; E field_type 3]);
   (486, [E field_args 3; I field_defaultValue 4; I field_dispid 4; I field_getter 4;
     I field_implements 4; I field_index 4; E field_name 2; I field_setter 4; I field_stored 4]);
   (495, [I field_attribute 5; I field_defaultValue 3; I field_dispid 3; I field_getter 3;
     I field_implements 3; I field_index 3; E field_name 2; I field_setter 3; I field_stored 3]);
   (504, [I field_defaultValue 4; I field_dispid 4; I field_getter 4; I field_implements 4;
     I field_index 4; E field_name 1; I field_setter 4; I field_stored 4; E field_type 3]);
   (513, [E field_args 2; I field_attribute 5; I field_defaultValue 3; I field_dispid 3;
     I field_getter 3; I field_implements 3; I field_index 3; E field_name 1;
     I field_setter 3; I field_stored 3]);
   (523, [I field_defaultValue 4; I field_dispid 4; I field_getter 4; I field_implements 4;
     I field_index 4; E field_name 3; I field_setter 4; I field_stored 4]);
   (531, [I field_attribute 1; E field_attribute 2]);
   (533, [I field_attribute 7; E field_name 3; E field_type 5]);
   (536, [E field_assign 6; E field_name 3; E field_type 5]);
   (539, [E field_args 4; E field_name 3; E field_type 6]);
   (542, [E field_args 4; E field_assign 5; I field_attribute 7; E field_name 3]);
   (546, [E field_assign 5; I field_attribute 7; E field_name 2; E field_type 4]);
   (550, [E field_args 3; I field_attribute 7; E field_name 2; E field_type 5]);
   (554, [E field_args 3; E field_assign 6; E field_name 2; E field_type 5]);
   (558, [E field_defaultValue 4; E field_name 0; E field_name 1; E field_type 2; E field_type 3]);
   (563, [E field_assign 5; I field_attribute 7; E field_name 1; E field_resultName 2;
     E field_type 4]);
   (568, [E field_attribute 1; I field_attribute 2]);
   (570, [E field_type 4]);
   (571, [E field_type 1]);
   (572, [E field_args 2; I field_attribute 7; E field_name 1; E field_resultName 3; E field_type 5]);
   (577, [E field_args 2; E field_assign 6; E field_name 1; E field_resultName 3; E field_type 5]);
   (582, [E field_args 2; E field_assign 5; I field_attribute 7; E field_name 1; E field_type 4]);
   (587, [E field_exception 3; E field_variable 1; E field_variable 2])
  ].

(** Entries 590 to 779. *)
Definition ts_field_map_entries_590 : list (Z * list TSFieldMapEntry) :=
  [
   (590, [I field_attribute 7; E field_name 2; E field_resultName 3; E field_type 5]);
   (594, [E field_assign 6; E field_name 2; E field_resultName 3; E field_type 5]);
   (598, [E field_args 3; E field_name 2; E field_resultName 4; E field_type 6]);
   (602, [E field_args 3; E field_assign 5; I field_attribute 7; E field_name 2;
     E field_resultName 4]);
   (607, [I field_attribute 6; E field_defaultValue 4; E field_name 1; E field_type 3]);
   (611, [I field_attribute 6; E field_name 0; E field_type 2]);
   (614, [I field_attribute 6; E field_name 1; E field_name 2; E field_type 4]);
   (618, [E field_defaultValue 5; E field_name 1; E field_name 2; E field_type 4]);
   (622, [I field_attribute 6; E field_defaultValue 4; E field_name 0; E field_name 1;
     E field_type 3]);
   (627, [I field_attribute 6; E field_name 1; E field_type 3; E field_type 4]);
   (631, [E field_parent 2; E field_parent 3; E field_parent 4]);
   (634, [E field_parent 1; E field_parent 2; E field_parent 3; E field_parent 4]);
   (638, [E field_guid 4; E field_parent 1; E field_parent 2; E field_parent 3]);
   (642, [E field_parent 3; E field_parent 4]);
   (644, [E field_guid 4; E field_parent 2; E field_parent 3]);
   (647, [E field_name 2; E field_type 4; E field_type 5]);
   (650, [I field_defaultValue 5; I field_dispid 5; I field_getter 5; I field_implements 5;
     I field_index 5; E field_name 2; I field_setter 5; I field_stored 5; E field_type 4]);
   (659, [E field_args 3; I field_attribute 6; I field_defaultValue 4; I field_dispid 4;
     I field_getter 4; I field_implements 4; I field_index 4; E field_name 2;
     I field_setter 4; I field_stored 4]);
   (669, [I field_attribute 6; I field_defaultValue 4; I field_dispid 4; I field_getter 4;
     I field_implements 4; I field_index 4; E field_name 1; I field_setter 4;
     I field_stored 4; E field_type 3]);
   (679, [E field_args 2; I field_defaultValue 5; I field_dispid 5; I field_getter 5;
     I field_implements 5; I field_index 5; E field_name 1; I field_setter 5;
     I field_stored 5; E field_type 4]);
   (689, [E field_args 4; I field_defaultValue 5; I field_dispid 5; I field_getter 5;
     I field_implements 5; I field_index 5; E field_name 3; I field_setter 5; I field_stored 5]);
   (698, [I field_attribute 6; I field_defaultValue 4; I field_dispid 4; I field_getter 4;
     I field_implements 4; I field_index 4; E field_name 3; I field_setter 4; I field_stored 4]);
   (707, [E field_assign 6; I field_attribute 8; E field_name 3; E field_type 5]);
   (711, [E field_args 4; I field_attribute 8; E field_name 3; E field_type 6]);
   (715, [E field_args 4; E field_assign 7; E field_name 3; E field_type 6]);
   (719, [E field_args 3; E field_assign 6; I field_attribute 8; E field_name 2; E field_type 5]);
   (724, [E field_args 3; E field_type 5]);
   (726, [E field_defaultValue 5; E field_name 2; E field_type 4]);
   (729, [E field_name 2; E field_name 3; E field_type 5]);
   (732, [E field_args 2; E field_assign 6; I field_attribute 8; E field_name 1;
     E field_resultName 3; E field_type 5]);
   (738, [E field_body 5; E field_exception 3; E field_variable 1; E field_variable 2]);
   (742, [E field_assign 6; I field_attribute 8; E field_name 2; E field_resultName 3;
     E field_type 5]);
   (747, [E field_args 3; I field_attribute 8; E field_name 2; E field_resultName 4; E field_type 6]);
   (752, [E field_args 3; E field_assign 7; E field_name 2; E field_resultName 4; E field_type 6]);
   (757, [I field_attribute 7; E field_name 1; E field_type 3]);
   (760, [I field_attribute 7; E field_defaultValue 5; E field_name 1; E field_name 2;
     E field_type 4]);
   (765, [I field_attribute 7; E field_name 0; E field_name 1; E field_type 3]);
   (769, [E field_parent 2; E field_parent 3; E field_parent 4; E field_parent 5]);
   (773, [E field_parent 4; E field_parent 5]);
   (775, [E field_guid 5; E field_parent 1; E field_parent 2; E field_parent 3; E field_parent 4])
  ].

(** Entries 780 to 929. *)
Definition ts_field_map_entries_780 : list (Z * list TSFieldMapEntry) :=
  [
   (780, [E field_parent 3; E field_parent 4; E field_parent 5]);
   (783, [E field_guid 5; E field_parent 2; E field_parent 3; E field_parent 4]);
   (787, [I field_attribute 7; E field_name 2; E field_type 4; E field_type 5]);
   (791, [I field_attribute 7; I field_defaultValue 5; I field_dispid 5; I field_getter 5;
     I field_implements 5; I field_index 5; E field_name 2; I field_setter 5;
     I field_stored 5; E field_type 4]);
   (801, [E field_args 3; I field_defaultValue 6; I field_dispid 6; I field_getter 6;
     I field_implements 6; I field_index 6; E field_name 2; I field_setter 6;
     I field_stored 6; E field_type 5]);
   (811, [E field_args 2; I field_attribute 7; I field_defaultValue 5; I field_dispid 5;
     I field_getter 5; I field_implements 5; I field_index 5; E field_name 1;
     I field_setter 5; I field_stored 5; E field_type 4]);
   (822, [I field_defaultValue 6; I field_dispid 6; I field_getter 6; I field_implements 6;
     I field_index 6; E field_name 3; I field_setter 6; I field_stored 6; E field_type 5]);
   (831, [E field_args 4; I field_attribute 7; I field_defaultValue 5; I field_dispid 5;
     I field_getter 5; I field_implements 5; I field_index 5; E field_name 3;
     I field_setter 5; I field_stored 5]);
   (841, [E field_args 4; E field_assign 7; I field_attribute 9; E field_name 3; E field_type 6]);
   (846, [E field_name 1; E field_name 2; E field_type 3]);
   (849, [E field_defaultValue 6; E field_name 2; E field_name 3; E field_type 5]);
   (853, [E field_args 3; E field_assign 7; I field_attribute 9; E field_name 2;
     E field_resultName 4; E field_type 6]);
   (859, [I field_attribute 8; E field_name 1; E field_name 2; E field_type 4]);
   (863, [E field_parent 4; E field_parent 5; E field_parent 6]);
   (866, [E field_parent 3; E field_parent 4; E field_parent 5; E field_parent 6]);
   (870, [E field_parent 5; E field_parent 6]);
   (872, [E field_guid 6; E field_parent 2; E field_parent 3; E field_parent 4; E field_parent 5]);
   (877, [E field_args 3; I field_attribute 8; I field_defaultValue 6; I field_dispid 6;
     I field_getter 6; I field_implements 6; I field_index 6; E field_name 2;
     I field_setter 6; I field_stored 6; E field_type 5]);
   (888, [I field_attribute 8; I field_defaultValue 6; I field_dispid 6; I field_getter 6;
     I field_implements 6; I field_index 6; E field_name 3; I field_setter 6;
     I field_stored 6; E field_type 5]);
   (898, [E field_args 4; I field_defaultValue 7; I field_dispid 7; I field_getter 7;
     I field_implements 7; I field_index 7; E field_name 3; I field_setter 7;
     I field_stored 7; E field_type 6]);
   (908, [E field_parent 4; E field_parent 5; E field_parent 6; E field_parent 7]);
   (912, [E field_parent 5; E field_parent 6; E field_parent 7]);
   (915, [E field_args 4; I field_attribute 9; I field_defaultValue 7; I field_dispid 7;
     I field_getter 7; I field_implements 7; I field_index 7; E field_name 3;
     I field_setter 7; I field_stored 7; E field_type 6]);
   (926, [E field_parent 5; E field_parent 6; E field_parent 7; E field_parent 8])
  ].

(** The zero entry has field number 0, which no field has; the runs leave no
    gap, so that it never occurs. *)
Definition ts_field_map_entries : list TSFieldMapEntry :=
  designated_runs (MkEntry field__dummy 0 false)
  (ts_field_map_entries_0
   ++ ts_field_map_entries_89
   ++ ts_field_map_entries_174
   ++ ts_field_map_entries_291
   ++ ts_field_map_entries_426
   ++ ts_field_map_entries_590
   ++ ts_field_map_entries_780).

(** ** Aliases *)

(** A row of the alias table; symbol 0 is the end symbol. *)
Definition alias_row : list (nat * ts_symbol) → list ts_symbol :=
  designated MAX_ALIAS_SEQUENCE_LENGTH ts_builtin_sym_end.

#[local] Abbreviation A := alias_row (only parsing).

Definition ts_alias_sequences : list (list ts_symbol) :=
  designated PRODUCTION_ID_COUNT (A [])
  [
   (0%nat, A [(0%nat, ts_builtin_sym_end)]); (3%nat, A [(0%nat, sym_identifier)]);
   (4%nat, A [(0%nat, sym_if)]); (5%nat, A [(0%nat, sym_block)]);
   (12%nat, A [(1%nat, sym_block)]); (17%nat, A [(0%nat, sym__ppElse)]);
   (18%nat, A [(0%nat, sym__ppIf); (1%nat, sym__ppEndIf)]); (19%nat, A [(0%nat, sym_block)]);
   (34%nat, A [(2%nat, sym_block)]); (36%nat, A [(2%nat, sym_block)]);
   (40%nat, A [(0%nat, sym_identifier)]);
   (47%nat, A [(0%nat, sym__ppIf); (2%nat, sym__ppEndIf)]); (73%nat, A [(3%nat, sym_block)]);
   (75%nat, A [(3%nat, sym_block)]); (80%nat, A [(0%nat, sym_identifier)]);
   (81%nat, A [(1%nat, sym_identifier)]); (93%nat, A [(3%nat, sym_block)]);
   (95%nat, A [(0%nat, sym_identifier)]);
   (97%nat, A [(0%nat, sym__ppIf); (3%nat, sym__ppEndIf)]); (135%nat, A [(4%nat, sym_block)]);
   (137%nat, A [(4%nat, sym_block)]); (149%nat, A [(4%nat, sym_block)]);
   (151%nat, A [(0%nat, sym_identifier)]); (152%nat, A [(0%nat, sym_identifier)]);
   (153%nat, A [(1%nat, sym_identifier)]); (155%nat, A [(1%nat, sym_identifier)]);
   (159%nat, A [(0%nat, sym__ppIf); (4%nat, sym__ppEndIf)]);
   (189%nat, A [(5%nat, sym_block)]); (198%nat, A [(0%nat, sym_identifier)]);
   (199%nat, A [(1%nat, sym_identifier)]); (200%nat, A [(1%nat, sym_identifier)]);
   (202%nat, A [(2%nat, sym_identifier)]); (205%nat, A [(1%nat, sym_identifier)]);
   (206%nat, A [(1%nat, sym_identifier)]); (240%nat, A [(0%nat, sym_identifier)]);
   (241%nat, A [(1%nat, sym_identifier)]); (244%nat, A [(2%nat, sym_identifier)]);
   (245%nat, A [(2%nat, sym_identifier)]); (247%nat, A [(1%nat, sym_identifier)]);
   (274%nat, A [(1%nat, sym_identifier)]); (276%nat, A [(2%nat, sym_identifier)]);
   (278%nat, A [(1%nat, sym_identifier)]); (295%nat, A [(2%nat, sym_identifier)])
  ].

Definition ts_non_terminal_alias_map : list nat :=
  [symbol_index sym_if; 2; symbol_index sym_if; symbol_index sym_if; symbol_index sym_blockTr; 2; symbol_index sym_blockTr; symbol_index sym_block; 0]%nat.
