(* ===== verification/PrimaryStates.v ===== *)
(** * The primary states of [parser.c]

    [ts_primary_state_ids] gives each of the 16007 parse states the first state
    with the same core of items; element [n] of the list is the initializer of
    state [n], and the blocks are consecutive. *)

From S2P Require Import Prelude.

(** States 0 to 149. *)
Definition ts_primary_state_ids_0 : list Z :=
  [
   0; 1; 2; 2; 4; 4; 4; 4; 4; 4; 4; 11; 12; 13; 11; 11; 12; 13; 11; 12; 13; 11; 12; 13; 13;
   13; 11; 12; 13; 11; 13; 11; 13; 11; 13; 11; 13; 11; 13; 11; 13; 11; 13; 11; 13; 11; 11; 11;
   11; 11; 50; 51; 52; 53; 53; 53; 53; 53; 58; 59; 60; 60; 59; 60; 59; 59; 60; 60; 59; 60; 70;
   59; 59; 60; 60; 59; 59; 60; 60; 59; 60; 59; 60; 59; 59; 60; 60; 59; 60; 59; 60; 59; 60; 59;
   60; 59; 60; 59; 60; 59; 60; 59; 60; 59; 60; 59; 60; 59; 60; 59; 60; 59; 60; 59; 114; 70;
   59; 114; 70; 60; 114; 70; 60; 114; 70; 114; 70; 114; 70; 114; 70; 114; 59; 133; 134; 135;
   136; 137; 136; 136; 140; 136; 136; 140; 136; 136; 146; 136; 136; 136
  ].

(** States 150 to 299. *)
Definition ts_primary_state_ids_150 : list Z :=
  [
   136; 136; 136; 136; 136; 136; 136; 136; 136; 136; 136; 136; 136; 163; 136; 136; 136; 136;
   136; 140; 140; 140; 140; 140; 140; 136; 176; 177; 178; 179; 180; 181; 182; 183; 184; 185;
   186; 185; 188; 189; 188; 191; 192; 193; 191; 185; 189; 188; 191; 192; 200; 192; 185; 203;
   189; 188; 191; 192; 208; 185; 189; 188; 191; 192; 185; 189; 188; 191; 192; 176; 185; 189;
   188; 191; 192; 225; 185; 189; 188; 191; 192; 189; 232; 185; 189; 188; 191; 192; 185; 239;
   189; 188; 191; 192; 244; 245; 246; 185; 248; 189; 188; 191; 192; 253; 254; 185; 189; 188;
   191; 192; 185; 189; 188; 191; 192; 185; 189; 188; 191; 192; 270; 271; 185; 273; 189; 188;
   191; 192; 278; 185; 189; 188; 191; 192; 284; 285; 185; 287; 189; 188; 191; 192; 292; 293;
   185; 295; 189; 188; 191; 192
  ].

(** States 300 to 449. *)
Definition ts_primary_state_ids_300 : list Z :=
  [
   300; 185; 189; 188; 191; 192; 185; 189; 188; 191; 192; 185; 189; 188; 191; 192; 185; 189;
   188; 191; 192; 185; 189; 188; 324; 192; 185; 189; 188; 191; 192; 185; 189; 188; 191; 192;
   185; 337; 189; 188; 191; 192; 342; 185; 344; 189; 188; 191; 192; 349; 185; 189; 188; 191;
   192; 185; 189; 188; 191; 192; 176; 208; 186; 193; 200; 203; 176; 367; 368; 208; 370; 186;
   193; 200; 203; 176; 376; 377; 378; 208; 380; 186; 193; 200; 203; 176; 386; 208; 186; 193;
   200; 203; 176; 208; 186; 193; 200; 203; 176; 208; 186; 193; 200; 203; 176; 208; 186; 193;
   200; 203; 176; 176; 176; 184; 414; 176; 416; 176; 418; 176; 176; 176; 176; 176; 176; 176;
   176; 176; 176; 176; 176; 176; 176; 176; 434; 184; 436; 184; 438; 184; 440; 184; 442; 184;
   444; 184; 191; 447; 447; 449
  ].

(** States 450 to 599. *)
Definition ts_primary_state_ids_450 : list Z :=
  [
   450; 451; 452; 447; 449; 450; 451; 452; 447; 449; 450; 451; 452; 447; 449; 450; 451; 452;
   468; 447; 449; 450; 451; 452; 447; 449; 451; 450; 451; 452; 480; 481; 482; 447; 484; 449;
   486; 450; 488; 451; 452; 491; 480; 481; 482; 447; 449; 484; 450; 486; 451; 452; 488; 491;
   447; 449; 451; 450; 451; 452; 452; 447; 449; 452; 450; 451; 452; 517; 449; 450; 451; 452;
   447; 449; 447; 449; 450; 450; 451; 452; 468; 451; 447; 449; 452; 450; 451; 452; 447; 539;
   447; 449; 542; 450; 451; 452; 447; 447; 449; 449; 450; 451; 452; 450; 468; 447; 451; 449;
   450; 451; 452; 452; 449; 563; 447; 449; 450; 451; 452; 447; 449; 452; 449; 450; 450; 451;
   452; 577; 468; 451; 447; 450; 449; 452; 450; 451; 452; 451; 451; 451; 451; 451; 451; 451;
   451; 451; 451; 451; 451; 451
  ].

(** States 600 to 749. *)
Definition ts_primary_state_ids_600 : list Z :=
  [
   451; 451; 451; 451; 451; 451; 451; 451; 451; 451; 451; 611; 612; 542; 614; 563; 611; 612;
   447; 449; 450; 542; 451; 563; 452; 611; 612; 627; 447; 542; 563; 449; 611; 450; 612; 635;
   451; 452; 542; 563; 612; 611; 612; 542; 563; 447; 611; 612; 449; 450; 542; 651; 563; 451;
   611; 452; 612; 542; 658; 563; 611; 447; 449; 450; 451; 452; 447; 449; 450; 451; 452; 447;
   449; 450; 451; 447; 676; 677; 482; 679; 680; 370; 682; 683; 684; 685; 686; 687; 688; 484;
   690; 691; 486; 488; 694; 344; 696; 697; 491; 699; 700; 701; 418; 703; 704; 434; 706; 707;
   708; 709; 436; 376; 712; 438; 714; 715; 716; 717; 718; 719; 720; 349; 440; 367; 724; 725;
   726; 727; 728; 729; 730; 731; 732; 377; 734; 735; 736; 737; 442; 739; 740; 741; 742; 743;
   744; 745; 746; 747; 748; 749
  ].

(** States 750 to 899. *)
Definition ts_primary_state_ids_750 : list Z :=
  [
   444; 751; 324; 753; 754; 755; 378; 757; 703; 177; 760; 761; 178; 763; 764; 765; 766; 380;
   768; 769; 770; 771; 300; 773; 774; 386; 776; 183; 778; 337; 780; 781; 782; 783; 179; 709;
   180; 787; 788; 181; 790; 791; 792; 793; 794; 225; 232; 182; 798; 799; 239; 801; 244; 803;
   414; 805; 245; 807; 368; 246; 810; 248; 812; 813; 253; 815; 816; 817; 254; 819; 820; 821;
   822; 823; 270; 825; 826; 827; 271; 829; 830; 831; 273; 833; 834; 835; 836; 837; 838; 480;
   840; 841; 842; 843; 844; 278; 284; 285; 287; 849; 292; 416; 293; 853; 295; 481; 342; 857;
   709; 703; 860; 860; 860; 860; 864; 480; 481; 482; 484; 486; 488; 491; 872; 873; 874; 875;
   876; 877; 878; 879; 880; 881; 882; 883; 884; 885; 886; 887; 888; 889; 468; 891; 892; 468;
   894; 895; 896; 897; 898; 899
  ].

(** States 900 to 1049. *)
Definition ts_primary_state_ids_900 : list Z :=
  [
   900; 468; 902; 903; 904; 905; 906; 907; 908; 909; 910; 911; 912; 913; 914; 915; 916; 917;
   918; 468; 920; 921; 922; 923; 924; 925; 926; 927; 928; 929; 930; 931; 932; 933; 934; 935;
   936; 937; 938; 468; 480; 481; 482; 484; 486; 488; 491; 947; 480; 481; 482; 484; 486; 488;
   491; 955; 956; 957; 958; 959; 960; 961; 962; 963; 484; 491; 709; 967; 468; 468; 488; 971;
   491; 481; 709; 482; 976; 468; 468; 484; 980; 981; 982; 983; 984; 985; 468; 987; 480; 481;
   482; 484; 703; 486; 488; 491; 996; 709; 480; 481; 480; 484; 486; 488; 491; 1005; 468; 480;
   481; 1009; 703; 486; 468; 480; 481; 482; 484; 486; 488; 491; 1020; 480; 481; 482; 468; 482;
   486; 488; 491; 703; 484; 468; 1032; 486; 488; 482; 482; 491; 481; 468; 482; 481; 484; 486;
   1044; 488; 480; 481; 468; 482
  ].

(** States 1050 to 1199. *)
Definition ts_primary_state_ids_1050 : list Z :=
  [
   482; 484; 486; 488; 468; 491; 480; 481; 482; 484; 468; 486; 488; 491; 491; 480; 484; 481;
   482; 468; 484; 486; 488; 491; 480; 481; 482; 1044; 484; 468; 486; 488; 491; 480; 481; 1085;
   482; 468; 484; 486; 488; 491; 482; 484; 703; 486; 488; 491; 481; 468; 709; 486; 488; 491;
   480; 480; 468; 1044; 468; 703; 481; 482; 484; 486; 709; 468; 488; 468; 468; 468; 480; 481;
   482; 484; 486; 488; 491; 491; 480; 468; 1130; 482; 481; 703; 1134; 1044; 484; 482; 484;
   1139; 1140; 1141; 468; 486; 488; 491; 703; 480; 468; 481; 482; 709; 1044; 1153; 468; 484;
   486; 1157; 488; 491; 1160; 480; 481; 482; 1164; 1165; 468; 480; 481; 482; 703; 484; 486;
   488; 491; 709; 484; 468; 486; 1044; 488; 468; 491; 480; 481; 480; 703; 484; 486; 488; 491;
   709; 486; 488; 491; 480; 1044; 481; 480; 481
  ].

(** States 1200 to 1349. *)
Definition ts_primary_state_ids_1200 : list Z :=
  [
   709; 468; 482; 484; 1204; 1044; 486; 488; 480; 1209; 1210; 703; 709; 703; 996; 1005; 703;
   1217; 1020; 709; 703; 1032; 709; 709; 976; 980; 981; 1227; 703; 1229; 703; 982; 1232; 703;
   1160; 1134; 984; 985; 709; 709; 1240; 709; 703; 709; 987; 1245; 709; 1247; 1248; 1217; 709;
   1251; 1252; 703; 1164; 1139; 1256; 703; 1165; 1140; 703; 1141; 709; 709; 1264; 1153; 1266;
   703; 1268; 1269; 1270; 709; 709; 1273; 703; 709; 971; 1277; 1278; 703; 703; 709; 703; 703;
   1284; 1285; 1286; 1157; 1288; 1289; 1290; 1291; 1292; 1293; 1294; 1130; 1296; 1297; 1298;
   1299; 1300; 1301; 1302; 1303; 1304; 1305; 709; 1209; 1308; 1309; 1277; 1240; 1312; 1273;
   1314; 1315; 1299; 1285; 1318; 1297; 1320; 1321; 1322; 1323; 1252; 1325; 1326; 1327; 1328;
   1329; 1330; 1331; 1270; 1264; 1256; 1335; 1298; 1245; 1291; 1232; 1229; 1341; 1251; 1293;
   1294; 1345; 1300; 1347; 1348; 1349
  ].

(** States 1350 to 1499. *)
Definition ts_primary_state_ids_1350 : list Z :=
  [
   1350; 1351; 1352; 1353; 1354; 1355; 1356; 1357; 1269; 1288; 1289; 1301; 1303; 1290; 1304;
   1284; 1366; 1305; 799; 1369; 1268; 1248; 1286; 1278; 1302; 1296; 1210; 1227; 971; 1292;
   1380; 1380; 1380; 1380; 1380; 1385; 1385; 1385; 1385; 1385; 1385; 1380; 1392; 1393; 1394;
   1395; 1396; 1397; 1398; 1399; 1400; 1401; 1401; 1403; 1403; 1405; 1399; 1407; 1408; 1405;
   1408; 1405; 1412; 1408; 1399; 1405; 1401; 1403; 1400; 1399; 1405; 1408; 1408; 1412; 1412;
   1400; 1426; 1407; 1400; 1412; 1400; 1426; 1407; 1426; 1434; 1412; 1401; 1437; 1400; 1426;
   1440; 1401; 1403; 1399; 1405; 1408; 1407; 1399; 1412; 1400; 1426; 1407; 1452; 1403; 1407;
   1426; 1401; 1403; 1401; 1459; 1401; 1403; 1403; 1399; 1405; 1408; 1405; 1412; 1400; 1426;
   1407; 1408; 1407; 1399; 1412; 1426; 376; 651; 225; 658; 232; 614; 627; 635; 239; 244; 245;
   651; 246; 248; 253; 254; 658; 270; 271; 273; 278; 284; 285; 287
  ].

(** States 1500 to 1649. *)
Definition ts_primary_state_ids_1500 : list Z :=
  [
   292; 293; 295; 300; 635; 342; 344; 349; 367; 368; 370; 627; 377; 378; 380; 386; 414; 416;
   418; 434; 436; 438; 440; 442; 444; 324; 177; 178; 179; 180; 181; 182; 183; 614; 627; 635;
   651; 658; 614; 337; 842; 821; 823; 825; 827; 829; 831; 833; 834; 836; 838; 840; 842; 744;
   747; 676; 714; 715; 716; 718; 727; 691; 726; 683; 685; 686; 690; 697; 700; 712; 731; 735;
   746; 749; 753; 764; 773; 732; 741; 743; 688; 724; 726; 730; 732; 741; 743; 744; 747; 688;
   769; 857; 769; 857; 826; 691; 730; 677; 724; 826; 676; 677; 815; 714; 715; 716; 718; 727;
   815; 817; 819; 821; 823; 825; 827; 688; 829; 691; 831; 833; 819; 836; 838; 840; 842; 683;
   685; 686; 690; 697; 826; 700; 712; 731; 735; 677; 676; 714; 715; 716; 718; 727; 746; 749;
   753; 764; 773; 815; 724; 817
  ].

(** States 1650 to 1799. *)
Definition ts_primary_state_ids_1650 : list Z :=
  [
   819; 726; 730; 732; 741; 743; 821; 744; 823; 747; 825; 827; 829; 831; 833; 834; 836; 838;
   840; 773; 683; 685; 769; 686; 690; 697; 700; 857; 712; 731; 735; 746; 749; 817; 753; 764;
   834; 436; 337; 342; 344; 349; 367; 368; 370; 376; 377; 378; 380; 386; 414; 416; 418; 434;
   436; 438; 440; 442; 444; 324; 177; 178; 179; 180; 181; 182; 183; 225; 232; 239; 244; 245;
   246; 248; 253; 254; 270; 271; 273; 278; 284; 285; 287; 292; 293; 295; 300; 337; 342; 344;
   349; 367; 368; 370; 376; 377; 378; 380; 386; 414; 416; 418; 434; 438; 440; 442; 444; 324;
   177; 178; 179; 180; 181; 182; 765; 816; 820; 837; 843; 844; 734; 760; 680; 699; 701; 704;
   728; 736; 737; 740; 774; 776; 783; 810; 835; 682; 684; 694; 696; 706; 708; 725; 729; 745;
   748; 763; 754; 755; 757; 766
  ].

(** States 1800 to 1949. *)
Definition ts_primary_state_ids_1800 : list Z :=
  [
   768; 770; 778; 780; 782; 790; 792; 794; 803; 805; 807; 300; 679; 853; 788; 791; 798; 801;
   751; 822; 813; 849; 812; 830; 841; 717; 720; 761; 765; 816; 820; 837; 843; 844; 734; 760;
   680; 699; 701; 704; 728; 736; 737; 740; 774; 776; 783; 810; 835; 682; 684; 694; 696; 706;
   708; 725; 729; 745; 748; 763; 754; 755; 757; 766; 768; 770; 778; 780; 782; 790; 792; 794;
   803; 805; 807; 687; 679; 853; 788; 791; 798; 801; 751; 822; 813; 849; 812; 830; 841; 717;
   720; 761; 225; 232; 239; 244; 245; 246; 248; 253; 254; 183; 270; 271; 273; 278; 284; 285;
   287; 292; 293; 295; 687; 923; 912; 947; 956; 874; 875; 876; 891; 892; 899; 900; 902; 903;
   906; 908; 909; 910; 918; 956; 891; 892; 874; 906; 875; 907; 908; 922; 923; 925; 909; 910;
   899; 900; 902; 903; 918; 876
  ].

(** States 1950 to 2099. *)
Definition ts_primary_state_ids_1950 : list Z :=
  [
   947; 956; 874; 875; 876; 907; 947; 922; 891; 892; 899; 900; 902; 903; 925; 906; 908; 909;
   910; 918; 907; 912; 922; 923; 912; 925; 337; 885; 886; 887; 888; 614; 179; 627; 635; 180;
   377; 651; 181; 658; 378; 380; 386; 614; 880; 881; 246; 882; 883; 884; 885; 886; 248; 253;
   254; 414; 416; 418; 182; 887; 888; 614; 627; 225; 927; 928; 635; 929; 930; 931; 932; 933;
   934; 935; 936; 937; 898; 658; 2028; 239; 244; 245; 651; 658; 2034; 926; 651; 894; 896; 897;
   912; 898; 270; 271; 895; 913; 273; 278; 904; 905; 878; 342; 344; 914; 911; 349; 915; 963;
   917; 920; 434; 436; 438; 440; 921; 924; 927; 928; 879; 930; 931; 932; 635; 933; 934; 627;
   935; 936; 937; 178; 912; 367; 368; 370; 938; 913; 442; 914; 915; 958; 897; 963; 959; 960;
   926; 284; 285; 287; 292; 293
  ].

(** States 2100 to 2249. *)
Definition ts_primary_state_ids_2100 : list Z :=
  [
   961; 962; 916; 957; 917; 920; 921; 924; 376; 864; 444; 324; 912; 955; 183; 295; 300; 872;
   873; 877; 938; 958; 959; 960; 961; 878; 962; 895; 916; 904; 905; 957; 879; 864; 955; 872;
   911; 880; 177; 881; 882; 883; 232; 884; 873; 877; 894; 896; 929; 821; 823; 825; 827; 829;
   831; 833; 834; 836; 838; 840; 842; 753; 764; 773; 1134; 688; 691; 1157; 1139; 1140; 1141;
   1165; 996; 683; 685; 686; 690; 697; 700; 712; 731; 735; 746; 749; 753; 764; 773; 1005;
   1160; 1204; 1130; 764; 724; 726; 730; 732; 741; 743; 744; 747; 724; 769; 857; 726; 730;
   732; 741; 743; 744; 747; 1134; 1139; 1140; 982; 1020; 688; 691; 1141; 826; 677; 676; 826;
   677; 676; 714; 715; 716; 718; 727; 714; 1032; 769; 857; 715; 984; 985; 716; 718; 727; 731;
   735; 1157; 773; 746; 1164; 1160; 1165; 971; 815; 749
  ].

(** States 2250 to 2399. *)
Definition ts_primary_state_ids_2250 : list Z :=
  [
   819; 1204; 821; 823; 825; 724; 726; 730; 732; 976; 987; 741; 743; 744; 827; 1204; 747; 829;
   831; 833; 834; 836; 838; 840; 842; 749; 753; 1164; 1165; 815; 688; 691; 1153; 980; 981;
   769; 857; 817; 819; 821; 823; 825; 827; 829; 831; 833; 1153; 1130; 1134; 1139; 834; 836;
   1140; 826; 677; 676; 714; 715; 716; 718; 727; 838; 840; 842; 1141; 1130; 683; 685; 686;
   1153; 690; 683; 1157; 697; 700; 712; 685; 686; 690; 731; 735; 1160; 697; 700; 712; 746;
   815; 1164; 817; 819; 817; 754; 271; 273; 278; 284; 285; 287; 292; 293; 295; 300; 337; 342;
   344; 349; 270; 706; 708; 367; 368; 370; 376; 377; 378; 380; 386; 414; 416; 418; 725; 729;
   745; 748; 763; 755; 434; 436; 438; 440; 442; 444; 324; 177; 757; 178; 179; 180; 181; 766;
   768; 770; 778; 844; 820; 816; 780; 182; 782; 790
  ].

(** States 2400 to 2549. *)
Definition ts_primary_state_ids_2400 : list Z :=
  [
   687; 792; 679; 812; 853; 788; 830; 841; 717; 794; 720; 803; 805; 696; 734; 760; 761; 183;
   1266; 791; 798; 801; 751; 680; 699; 701; 822; 813; 849; 704; 728; 1266; 837; 843; 1266;
   736; 737; 740; 774; 1130; 1134; 225; 232; 1139; 1140; 1141; 765; 239; 244; 245; 246; 248;
   253; 254; 1130; 1134; 1139; 1140; 1141; 776; 783; 1130; 810; 1134; 835; 1139; 682; 684;
   694; 1140; 1141; 807; 876; 892; 1153; 1160; 1160; 899; 900; 902; 903; 1032; 906; 984; 985;
   1164; 874; 947; 908; 909; 910; 956; 1165; 918; 1164; 907; 1266; 1130; 947; 956; 1134; 1266;
   907; 1020; 976; 987; 1139; 912; 1140; 1141; 918; 1130; 912; 1157; 891; 922; 923; 874; 1134;
   925; 892; 875; 1139; 1140; 1141; 980; 981; 947; 956; 874; 875; 876; 906; 875; 891; 892;
   925; 982; 876; 1130; 923; 1134; 891; 900; 902; 903; 1139; 1165; 1140; 1141
  ].

(** States 2550 to 2699. *)
Definition ts_primary_state_ids_2550 : list Z :=
  [
   906; 899; 900; 1153; 980; 908; 909; 910; 971; 981; 1266; 996; 985; 1347; 1005; 918; 1366;
   922; 923; 976; 902; 903; 1314; 1157; 987; 908; 925; 909; 910; 907; 971; 971; 971; 2583;
   971; 2585; 1347; 1366; 1314; 1314; 996; 1005; 912; 982; 1020; 922; 1347; 1366; 1032; 984;
   899; 912; 895; 911; 895; 911; 904; 911; 912; 912; 905; 895; 904; 904; 905; 905; 971; 1134;
   1032; 1164; 1139; 1165; 1140; 1141; 984; 985; 1164; 1140; 1141; 1139; 1204; 976; 987; 1204;
   1153; 1165; 1130; 1160; 996; 1005; 1164; 1130; 1134; 1139; 1140; 1141; 1165; 982; 980;
   1020; 1153; 1160; 1153; 1157; 1130; 981; 1204; 1157; 1160; 1134; 1157; 1266; 1139; 1266;
   1130; 1140; 1140; 1141; 1130; 1130; 1266; 1134; 1134; 1141; 1139; 1139; 1134; 1140; 1141;
   1157; 1366; 1160; 1366; 1164; 1153; 1160; 1134; 1266; 1139; 1165; 982; 1140; 1020; 1164;
   1139; 1134; 971; 1314; 1139; 1130
  ].

(** States 2700 to 2849. *)
Definition ts_primary_state_ids_2700 : list Z :=
  [
   1140; 1153; 1160; 1134; 1347; 1141; 1164; 1165; 1140; 1141; 971; 1347; 976; 1130; 1366;
   987; 1032; 984; 1165; 1141; 985; 971; 1153; 980; 1266; 981; 1314; 1314; 1266; 971; 1347;
   1157; 1130; 1157; 996; 1005; 2585; 2583; 2738; 2739; 2740; 2740; 2739; 2738; 2738; 2738;
   2739; 2740; 2739; 2740; 2739; 2738; 2740; 2738; 2739; 2738; 2740; 2740; 2739; 2759; 2585;
   2583; 2585; 2583; 2583; 2765; 2585; 2767; 2768; 2767; 2767; 2768; 2772; 2768; 2768; 2775;
   2767; 2767; 2583; 2767; 2768; 2767; 2768; 2772; 2767; 2768; 2767; 2767; 2775; 2767; 2767;
   2767; 2768; 2767; 2767; 2772; 2585; 2775; 2768; 2767; 2772; 2768; 2585; 2772; 2767; 2775;
   2768; 2768; 2768; 2767; 2768; 2583; 2772; 2768; 2767; 2775; 2767; 2767; 2818; 2768; 2767;
   2772; 2768; 2775; 2768; 2772; 2768; 2775; 2767; 2768; 2585; 2768; 2768; 2833; 2834; 2767;
   2775; 2768; 2838; 2767; 2767; 2768; 2768; 2768; 2767; 2767; 2767; 2583; 2768; 2768
  ].

(** States 2850 to 2999. *)
Definition ts_primary_state_ids_2850 : list Z :=
  [
   2768; 2851; 2583; 2853; 2854; 2585; 2854; 2857; 2858; 2859; 2860; 2861; 2854; 2860; 2858;
   2858; 2858; 2867; 2861; 2869; 2870; 2860; 2853; 2861; 2853; 2854; 2853; 2867; 2858; 2879;
   2861; 2867; 2882; 2870; 2583; 2583; 2886; 2854; 2888; 2889; 2870; 2585; 2892; 2893; 2894;
   2858; 2882; 2869; 2882; 2854; 2900; 2867; 2879; 2893; 2900; 2882; 2858; 2854; 2585; 2859;
   2886; 2911; 2858; 2583; 2892; 2851; 2860; 2585; 2894; 2919; 2870; 2854; 2911; 774; 761;
   803; 805; 748; 300; 414; 416; 763; 853; 418; 720; 788; 791; 798; 801; 751; 754; 755; 273;
   768; 816; 278; 822; 706; 813; 849; 820; 734; 760; 708; 2954; 2892; 434; 436; 438; 2583;
   440; 442; 725; 2585; 444; 324; 810; 2879; 2893; 770; 837; 843; 271; 2973; 687; 729; 778;
   2583; 835; 177; 2980; 682; 337; 342; 2851; 225; 344; 349; 2988; 780; 745; 2585; 812; 2859;
   830; 270; 178; 179; 180; 181
  ].

(** States 3000 to 3149. *)
Definition ts_primary_state_ids_3000 : list Z :=
  [
   232; 807; 782; 783; 844; 680; 284; 699; 684; 239; 790; 3011; 285; 182; 244; 245; 287; 3017;
   701; 704; 728; 367; 368; 370; 376; 246; 377; 694; 248; 378; 380; 253; 254; 696; 386; 792;
   765; 183; 2583; 841; 794; 757; 736; 2900; 292; 737; 740; 293; 679; 2886; 2911; 295; 2894;
   2869; 766; 2954; 717; 2585; 776; 3059; 2851; 2859; 2869; 3059; 3059; 2879; 2893; 2900;
   3068; 3069; 3059; 3059; 3059; 3073; 3059; 3059; 3059; 3059; 3059; 3059; 3059; 2583; 3059;
   2585; 3059; 3059; 2851; 2859; 3059; 3059; 3059; 2954; 3059; 3059; 3059; 3059; 3096; 3059;
   3059; 3059; 3059; 3059; 3059; 3059; 3059; 3059; 3059; 3059; 3059; 3059; 3059; 3069; 3073;
   3096; 3068; 3059; 3069; 3059; 3073; 2894; 3068; 3059; 3069; 3073; 3059; 3096; 3068; 2583;
   3069; 3073; 3096; 3068; 3059; 3059; 3059; 3069; 3073; 3137; 3096; 2585; 3059; 3068; 3059;
   3059; 3069; 3073; 2886; 3059; 3096; 2911
  ].

(** States 3150 to 3299. *)
Definition ts_primary_state_ids_3150 : list Z :=
  [
   3068; 2892; 3059; 3069; 3059; 3059; 3069; 3069; 3069; 3059; 3059; 3161; 2886; 3059; 2911;
   2892; 2894; 2869; 2879; 2893; 2900; 3059; 3172; 3059; 3096; 3175; 3176; 3177; 3178; 3179;
   2886; 3181; 2851; 3183; 2859; 3185; 3186; 3187; 3188; 2911; 3175; 3191; 3192; 3193; 3194;
   3195; 3196; 3197; 3198; 2583; 3200; 3187; 2892; 3203; 3194; 3205; 2585; 3200; 3208; 3186;
   3210; 3211; 3177; 3211; 3188; 3181; 3191; 3192; 3195; 3197; 3220; 3221; 3222; 3223; 3224;
   3225; 3226; 3178; 3221; 3198; 3220; 3231; 3185; 2894; 3179; 3235; 3231; 3193; 3200; 3208;
   3186; 3210; 3177; 3211; 3188; 3181; 3191; 3192; 3195; 2869; 3250; 3197; 3222; 3223; 3224;
   3225; 3226; 3178; 3222; 3198; 3220; 3185; 3179; 3235; 3193; 3265; 3200; 3208; 3186; 3269;
   3270; 3210; 3272; 3177; 3211; 3188; 3181; 3191; 3192; 3195; 3280; 3222; 3223; 3224; 3225;
   3226; 3178; 3185; 2879; 3269; 3200; 3208; 3186; 3210; 3177; 3211; 3188; 3181; 3191; 3195
  ].

(** States 3300 to 3449. *)
Definition ts_primary_state_ids_3300 : list Z :=
  [
   3208; 3222; 3223; 3224; 3225; 3226; 3178; 2893; 3185; 3224; 2900; 3269; 3270; 3208; 3186;
   3211; 3181; 3191; 3192; 3195; 3210; 3321; 3222; 3226; 3178; 3223; 3326; 3270; 3225; 3196;
   2583; 3208; 3186; 3211; 3181; 3191; 3192; 3195; 3222; 3226; 3178; 3341; 2585; 3343; 2851;
   3211; 3222; 3347; 3348; 3235; 3350; 3211; 3222; 2886; 3211; 3222; 2859; 3211; 3222; 3359;
   3360; 2911; 2892; 2894; 3176; 3183; 3366; 2869; 2879; 3269; 2893; 3270; 2900; 3373; 3374;
   3176; 3175; 3176; 3175; 3176; 3175; 3226; 3176; 3175; 3176; 3175; 3386; 3192; 3388; 3388;
   2954; 2859; 2886; 2892; 2894; 3395; 3396; 2851; 3388; 2869; 2879; 2893; 2585; 3388; 2838;
   3396; 2911; 2900; 3408; 2879; 2886; 3388; 2879; 3396; 2911; 2893; 2894; 2892; 3418; 2893;
   2583; 3421; 3422; 3396; 2894; 3425; 3426; 3427; 3396; 3396; 2869; 2859; 2851; 3388; 3396;
   3388; 2879; 3388; 2893; 2892; 2900; 2954; 2869; 3388; 2818; 2954; 3396; 3447; 3396; 2900
  ].

(** States 3450 to 3599. *)
Definition ts_primary_state_ids_3450 : list Z :=
  [
   2851; 2869; 2892; 2894; 3396; 2859; 3388; 2859; 3458; 2900; 2886; 2851; 3388; 2886; 3464;
   3465; 3466; 3388; 3468; 3388; 3396; 3471; 2911; 3388; 2911; 3475; 3476; 3477; 3478; 2894;
   3476; 3477; 2892; 3483; 3476; 3477; 3486; 3483; 3476; 3477; 2585; 3491; 3477; 3477; 3494;
   3495; 2894; 3497; 2869; 3499; 3500; 3501; 3483; 3476; 2879; 3475; 3477; 2893; 2893; 3509;
   2869; 3511; 3512; 2879; 3483; 3476; 2893; 3477; 3483; 3519; 3483; 3521; 2911; 3497; 3483;
   3501; 3476; 3483; 2851; 2954; 3483; 3476; 2954; 3497; 3534; 3476; 3501; 3477; 3476; 3477;
   3483; 3477; 3483; 2900; 2900; 2869; 3477; 3512; 2954; 3483; 3476; 3476; 3477; 2886; 3554;
   3477; 3497; 3521; 2886; 3476; 3560; 2892; 3497; 2859; 3483; 3476; 2886; 3483; 3477; 3501;
   3476; 2886; 3497; 3477; 2911; 2892; 2894; 2869; 2886; 3483; 2879; 3512; 2879; 3483; 3476;
   2893; 2900; 3477; 2911; 2892; 3521; 3483; 2894; 2869; 2879; 2893; 3483; 2911; 3483; 2900
  ].

(** States 3600 to 3749. *)
Definition ts_primary_state_ids_3600 : list Z :=
  [
   3476; 3501; 2851; 3497; 3483; 3476; 3497; 3476; 3477; 2892; 2859; 3497; 3477; 3476; 3476;
   3476; 3477; 3483; 3618; 3477; 3483; 3476; 2879; 2900; 3476; 3477; 3626; 2818; 2585; 3629;
   2851; 2851; 3501; 3477; 2851; 3635; 3636; 2893; 2859; 3483; 3476; 2859; 3477; 2859; 3644;
   3645; 3477; 3476; 3648; 2894; 2954; 2900; 3652; 3483; 3483; 3501; 3476; 3657; 3477; 2851;
   3477; 3483; 2583; 3663; 3664; 3477; 3483; 3497; 3483; 3476; 3483; 3476; 3477; 3497; 3521;
   3476; 3476; 3483; 3476; 3501; 3477; 3483; 3477; 3483; 3476; 3477; 3477; 3483; 3476; 3477;
   3690; 2911; 3483; 3476; 3501; 3477; 3483; 3476; 3477; 3477; 3501; 3483; 3476; 3477; 2954;
   2954; 3483; 3501; 3476; 3477; 2859; 3483; 3501; 3476; 3477; 3501; 3476; 3483; 3501; 3476;
   3477; 3501; 3483; 3501; 3483; 3501; 3476; 3501; 3497; 3476; 3501; 3477; 3732; 3501; 2894;
   3483; 3477; 3476; 3738; 3477; 3483; 3476; 3512; 3477; 3483; 3476; 3477; 2886; 2838; 3483
  ].

(** States 3750 to 3899. *)
Definition ts_primary_state_ids_3750 : list Z :=
  [
   3483; 3476; 3477; 2869; 3483; 3476; 2911; 3477; 3758; 3483; 3476; 3477; 3497; 3476; 3483;
   3476; 2892; 3477; 2583; 3483; 3475; 3475; 3475; 3475; 3475; 3475; 3475; 3475; 3475; 3475;
   3475; 3475; 3475; 3475; 3475; 3475; 3475; 3475; 3475; 3477; 3475; 3475; 3475; 3475; 3475;
   3475; 3475; 3475; 3738; 3738; 3738; 3738; 3738; 3738; 3738; 3483; 3806; 3807; 2900; 3809;
   3810; 3806; 3812; 3813; 3814; 3813; 3806; 2954; 3818; 3810; 3806; 2851; 3810; 3806; 2954;
   3818; 3826; 2894; 3810; 3806; 2859; 3818; 2834; 3810; 3806; 987; 3813; 2879; 3810; 3806;
   2833; 2954; 2879; 3810; 3806; 2585; 2583; 2859; 3810; 3806; 3810; 2954; 3826; 3810; 3806;
   2893; 2869; 2859; 3810; 3806; 2911; 2892; 3818; 3810; 3806; 3826; 2954; 3534; 3810; 3806;
   3813; 2954; 2894; 3810; 3806; 2851; 984; 3810; 3806; 2818; 996; 3810; 3806; 976; 2954; 982;
   3810; 3806; 2838; 3889; 3810; 3806; 3818; 3810; 3810; 3806; 3806; 3826; 3810; 3806
  ].

(** States 3900 to 4049. *)
Definition ts_primary_state_ids_3900 : list Z :=
  [
   3814; 3901; 3810; 3806; 3814; 2954; 3810; 3806; 3810; 3806; 3810; 3806; 3810; 3806; 3810;
   3806; 3810; 3806; 3810; 3806; 3810; 3806; 3810; 3806; 3810; 3806; 3810; 3806; 3810; 3806;
   3810; 3806; 3810; 3818; 2851; 3806; 3810; 3806; 3810; 3806; 3810; 3806; 3810; 3806; 3810;
   3806; 3810; 3806; 3810; 3806; 3810; 3806; 2954; 2954; 980; 981; 3956; 3957; 3807; 2900;
   2954; 1005; 3806; 3956; 3957; 3807; 3814; 2886; 2954; 3969; 3956; 3957; 3807; 3956; 2893;
   2954; 2900; 3956; 3978; 2583; 2869; 3981; 3956; 3810; 3806; 2911; 2892; 3956; 2911; 2892;
   3956; 3956; 3956; 3956; 3956; 3956; 3956; 3956; 3956; 3956; 3956; 3956; 3956; 2585; 2886;
   4005; 3810; 3534; 3957; 3814; 3810; 3806; 3889; 3810; 3806; 1020; 2954; 3814; 2886; 2894;
   3814; 2869; 2879; 2954; 971; 4025; 2893; 3818; 2954; 3889; 985; 3810; 1032; 2954; 3810;
   3806; 4036; 3806; 3810; 4039; 2886; 2911; 2892; 2894; 2869; 2879; 2893; 2900; 2851; 2886
  ].

(** States 4050 to 4199. *)
Definition ts_primary_state_ids_4050 : list Z :=
  [
   2859; 2911; 2892; 2894; 2869; 2879; 2893; 2900; 4058; 4059; 4060; 4061; 4062; 2851; 2859;
   4065; 2900; 4067; 4068; 4069; 4067; 4067; 4067; 2886; 4067; 4067; 4067; 4068; 4078; 4039;
   4080; 2911; 2892; 4083; 4084; 4085; 4086; 4067; 4088; 4089; 2894; 2869; 1321; 799; 2888;
   4095; 4096; 2889; 4039; 4061; 4080; 2583; 4102; 4068; 4085; 4062; 4039; 4061; 4080; 4085;
   4062; 4039; 4061; 4080; 4085; 4062; 4039; 4061; 4080; 4085; 4062; 4121; 4122; 4039; 4061;
   4080; 4085; 4065; 4062; 4039; 4061; 4080; 4085; 2585; 4062; 4135; 4136; 4039; 4080; 4085;
   4039; 4080; 2859; 4039; 4080; 4039; 4080; 4039; 4080; 4039; 4080; 4151; 4039; 4080; 2879;
   4039; 4080; 2893; 4039; 4080; 4039; 4080; 4039; 4080; 4039; 4080; 4039; 4080; 4039; 4080;
   4039; 4080; 4039; 4080; 4080; 4039; 4080; 4039; 4080; 4039; 4080; 4181; 4039; 4080; 4039;
   4080; 4096; 4065; 4096; 4065; 4096; 4065; 4096; 4065; 4096; 4065; 4096; 4065; 4096; 2851
  ].

(** States 4200 to 4349. *)
Definition ts_primary_state_ids_4200 : list Z :=
  [
   4200; 4201; 4202; 4203; 4204; 4205; 4202; 4207; 4208; 4209; 4210; 4210; 4209; 4209; 4201;
   4202; 4203; 4204; 4205; 4207; 4208; 4201; 4202; 4203; 4210; 4204; 4205; 4209; 2886; 4229;
   4201; 4202; 4203; 4204; 4205; 4207; 4207; 2911; 2892; 4208; 2894; 2869; 2879; 2893; 4210;
   2900; 4209; 4247; 4201; 4202; 4203; 4204; 4205; 4207; 4208; 4210; 4209; 2886; 4201; 4202;
   4203; 4204; 4205; 4207; 2911; 2892; 4208; 2894; 2869; 2879; 2893; 4210; 2900; 2851; 4209;
   2859; 4201; 4202; 4203; 4204; 4205; 4281; 4207; 4208; 4210; 4209; 4201; 4202; 4203; 4204;
   4205; 4208; 4207; 4208; 4210; 2851; 4209; 2859; 4201; 4202; 4203; 4204; 4205; 4207; 4208;
   4210; 4209; 4201; 4202; 4203; 4204; 4205; 4207; 4201; 4208; 4210; 2851; 4209; 4209; 4201;
   4202; 4203; 4204; 4205; 4207; 4325; 4208; 4327; 4210; 4209; 4201; 4202; 4203; 4204; 4205;
   4210; 4207; 4210; 4208; 4210; 2859; 4202; 4201; 4343; 4202; 4345; 4209; 4203; 4348; 4203
  ].

(** States 4350 to 4499. *)
Definition ts_primary_state_ids_4350 : list Z :=
  [
   4200; 2886; 4204; 4201; 4354; 4355; 4202; 4203; 4358; 4204; 4205; 4205; 4362; 4207; 2911;
   2892; 4207; 4208; 2894; 2869; 4209; 4371; 4201; 4203; 4204; 4205; 4204; 4208; 4210; 2879;
   2893; 4210; 2900; 4383; 4205; 4343; 4209; 4208; 4345; 4209; 4201; 4354; 4355; 4202; 4203;
   4358; 4204; 4205; 4398; 4207; 4208; 4401; 4402; 4207; 4343; 4210; 4345; 4354; 4355; 2851;
   4209; 4358; 2886; 2859; 4201; 4202; 4203; 4204; 4205; 4207; 2900; 2911; 2892; 4208; 4424;
   4343; 2894; 2869; 3011; 4345; 4430; 4354; 4355; 4358; 4434; 4435; 2879; 2893; 4438; 4201;
   4202; 4210; 4203; 4204; 4208; 2900; 4343; 4205; 4345; 4354; 4355; 4358; 4209; 4201; 4202;
   4203; 4204; 4205; 4207; 4207; 4208; 4343; 4210; 4345; 4354; 4355; 4358; 4467; 4348; 4210;
   4343; 4345; 4354; 4355; 4358; 4343; 4209; 4477; 4200; 4201; 4202; 4203; 4204; 4343; 4205;
   4345; 4207; 4354; 4355; 4358; 4490; 4491; 4492; 4493; 4362; 4208; 4210; 4497; 4343; 4345
  ].

(** States 4500 to 4649. *)
Definition ts_primary_state_ids_4500 : list Z :=
  [
   4354; 4355; 4358; 4503; 4504; 4209; 4506; 4343; 4205; 4210; 4510; 4345; 4208; 4354; 4355;
   4358; 4201; 4345; 4201; 4202; 4520; 4203; 4204; 4202; 4205; 4343; 4203; 4345; 4354; 4355;
   2851; 4209; 4358; 2886; 2859; 4201; 4202; 4203; 4204; 4205; 4540; 4343; 4207; 2911; 4354;
   4355; 2892; 4358; 4208; 2894; 2869; 4343; 4207; 4354; 4355; 4204; 4358; 4210; 2879; 2893;
   4210; 4343; 4562; 4354; 4355; 4205; 4358; 2900; 4343; 4209; 4354; 4355; 2886; 4358; 4201;
   4202; 4203; 4204; 4205; 4579; 4207; 2911; 2892; 4208; 4343; 4207; 4209; 2894; 2869; 4354;
   4355; 4358; 4207; 2879; 2893; 4595; 4210; 2900; 4343; 4209; 4354; 4355; 4358; 4201; 4202;
   4203; 4204; 4205; 4343; 4207; 4354; 4355; 4358; 4201; 4208; 4209; 4202; 4343; 4203; 4354;
   4355; 4358; 4204; 4205; 4343; 4354; 4355; 4210; 4358; 4201; 4343; 4354; 4355; 4202; 4358;
   4203; 2851; 4209; 4204; 4343; 2859; 4201; 4354; 4355; 4202; 4203; 4358; 4204; 4205; 4205
  ].

(** States 4650 to 4799. *)
Definition ts_primary_state_ids_4650 : list Z :=
  [
   4207; 4343; 4208; 4207; 4354; 4355; 4358; 4207; 4343; 4354; 4355; 4358; 4662; 4210; 4343;
   4354; 4355; 4358; 4343; 2851; 4209; 4354; 4355; 4358; 2859; 4201; 4202; 4203; 4204; 4205;
   4343; 4207; 4354; 4355; 4358; 4354; 4208; 4208; 4355; 4343; 4354; 4355; 4358; 4208; 4208;
   4358; 4358; 4210; 4358; 4358; 4358; 4209; 4358; 4358; 4358; 4209; 4358; 4201; 4358; 4202;
   4203; 4204; 4205; 4358; 4207; 4358; 4358; 4208; 4358; 4719; 4358; 4208; 4358; 2980; 4358;
   4358; 4358; 4358; 4728; 4210; 4358; 4358; 4358; 4358; 4734; 4490; 4540; 4210; 4738; 4209;
   4740; 4467; 4348; 4203; 4744; 4209; 4201; 4562; 4579; 4662; 4202; 4201; 4201; 4229; 4202;
   4203; 4435; 4438; 4204; 4205; 4492; 4362; 4203; 4207; 4595; 4765; 4766; 4208; 4728; 4769;
   4770; 4771; 4204; 4205; 4491; 4493; 4209; 4201; 4203; 4204; 4205; 4208; 4210; 4209; 4201;
   4202; 4204; 4204; 4205; 4208; 4210; 4201; 4202; 4203; 4204; 4205; 4208; 4210; 4358; 4358
  ].

(** States 4800 to 4949. *)
Definition ts_primary_state_ids_4800 : list Z :=
  [
   4358; 4734; 4490; 4202; 4540; 4203; 4204; 4210; 4740; 4467; 4205; 4562; 4579; 4662; 4229;
   4435; 4438; 4209; 4492; 4595; 4201; 4202; 4203; 4765; 4766; 4204; 4205; 4210; 4207; 4208;
   4728; 4769; 4770; 4771; 4491; 4493; 4734; 4490; 4207; 4540; 4210; 4209; 4740; 4769; 4467;
   4208; 4562; 4579; 4662; 4207; 4201; 4202; 4203; 4229; 4204; 4435; 4438; 4205; 4492; 4595;
   4207; 4765; 4766; 4863; 4770; 4728; 4769; 4770; 4771; 4491; 4493; 4208; 4734; 4490; 4540;
   2988; 4876; 4740; 4878; 4467; 4210; 4562; 4579; 4662; 4884; 4229; 4435; 4438; 4888; 4492;
   4771; 4891; 4209; 4765; 4766; 4210; 4728; 4769; 4770; 4771; 4491; 4493; 4734; 4490; 2886;
   4540; 4201; 4740; 4467; 4202; 4562; 4579; 4662; 4209; 4203; 4204; 4229; 4435; 4438; 4209;
   4201; 4492; 4202; 4203; 4765; 4766; 4204; 4205; 4928; 4207; 4728; 4769; 4770; 4771; 4491;
   4493; 4208; 4734; 4490; 4205; 4540; 4941; 4207; 4740; 4467; 2911; 4210; 4562; 4579; 4662
  ].

(** States 4950 to 5099. *)
Definition ts_primary_state_ids_4950 : list Z :=
  [
   4209; 2892; 4208; 4229; 4435; 4438; 4492; 4201; 4202; 4765; 4766; 4203; 4204; 4205; 4207;
   4728; 4769; 4770; 4771; 4969; 2894; 4491; 4493; 2869; 4208; 4734; 4490; 2879; 4540; 2886;
   2893; 4740; 4467; 4210; 4210; 4562; 4579; 4662; 4229; 4435; 4438; 4210; 4492; 4209; 4734;
   4201; 4202; 4490; 2900; 4540; 4203; 4204; 4467; 4205; 4207; 4562; 4579; 4662; 4229; 4492;
   4209; 4734; 4201; 4202; 4490; 4210; 4540; 5017; 4467; 4208; 4562; 4579; 4662; 4229; 4492;
   4203; 4734; 4204; 4205; 4490; 4540; 4201; 4467; 4207; 4562; 4579; 4662; 4229; 4492; 4734;
   5040; 4490; 4202; 4540; 4203; 4210; 4208; 4467; 4562; 4579; 4662; 4229; 4492; 4734; 4209;
   4490; 4204; 4540; 4205; 5059; 4467; 4562; 4579; 4662; 4229; 4492; 4734; 5067; 4201; 4490;
   4207; 4540; 4209; 4202; 4203; 4467; 4204; 4562; 4579; 4662; 4229; 4492; 4734; 4205; 4201;
   4490; 4208; 4540; 4202; 4207; 4562; 4579; 4662; 4229; 4734; 4203; 3017; 4490; 4204; 4540
  ].

(** States 5100 to 5249. *)
Definition ts_primary_state_ids_5100 : list Z :=
  [
   4205; 4208; 4562; 4579; 4662; 4229; 4734; 4490; 4210; 4540; 2894; 4358; 4562; 4579; 4662;
   4229; 4734; 4490; 4207; 4540; 2911; 4210; 4562; 4579; 4662; 4229; 4734; 4490; 5128; 4540;
   4209; 4209; 2892; 4562; 4579; 4662; 4229; 4734; 4210; 4490; 5140; 4540; 2869; 4201; 4562;
   4579; 4662; 4229; 4734; 4202; 4203; 4490; 4540; 4201; 4204; 4205; 4562; 4579; 4662; 4229;
   4734; 4207; 4490; 4202; 4540; 4203; 4562; 4579; 4662; 4229; 4734; 4490; 4204; 4540; 4205;
   4208; 4208; 4562; 4579; 4662; 4229; 4734; 4208; 4490; 4540; 4210; 4562; 4579; 4662; 4229;
   4734; 4734; 4490; 4540; 4207; 4562; 4579; 4662; 4229; 4734; 4490; 4540; 5202; 4210; 4562;
   4579; 4662; 4229; 4734; 4209; 4490; 2973; 4540; 5213; 4209; 4562; 4579; 4662; 4229; 4734;
   4490; 4740; 4540; 5223; 4562; 4579; 4662; 4229; 4734; 4490; 4208; 4540; 5232; 4562; 4579;
   4662; 4229; 4734; 4540; 4229; 4734; 4540; 4201; 4202; 4229; 4734; 4540; 4203; 4204; 4229
  ].

(** States 5250 to 5399. *)
Definition ts_primary_state_ids_5250 : list Z :=
  [
   4734; 4540; 4205; 4229; 4734; 4540; 4207; 4229; 4734; 4540; 4229; 4734; 4540; 4229; 4734;
   4540; 4229; 4734; 4540; 4229; 4734; 4540; 4229; 4540; 4229; 4540; 4208; 4229; 4540; 4229;
   4540; 4229; 4540; 4229; 4540; 4229; 4540; 4229; 4540; 4201; 4229; 4540; 4229; 4540; 4229;
   4540; 4202; 4203; 4229; 4540; 4229; 4229; 4229; 4398; 4734; 4497; 4719; 4204; 5308; 4205;
   4229; 4327; 4371; 4383; 4210; 4520; 4202; 4207; 4209; 4207; 4209; 4201; 4203; 4204; 4205;
   4208; 4210; 4398; 4497; 4719; 5330; 5331; 4209; 4229; 4327; 4371; 4383; 4520; 2886; 4207;
   4398; 4497; 4201; 4202; 4719; 4208; 4203; 2879; 4204; 4327; 4371; 4383; 4205; 4520; 4207;
   4398; 4497; 2911; 4719; 2893; 2892; 4210; 4208; 4327; 4371; 4383; 4520; 4398; 4497; 2894;
   2869; 4719; 2879; 4210; 2893; 4327; 4371; 4383; 4210; 4520; 4398; 4497; 2900; 4719; 2851;
   4209; 4209; 4327; 4371; 4383; 4520; 4398; 4497; 4719; 2859; 4327; 4371; 4383; 4520; 4398
  ].

(** States 5400 to 5549. *)
Definition ts_primary_state_ids_5400 : list Z :=
  [
   4201; 4398; 4202; 4398; 4203; 4398; 4204; 4398; 4205; 4398; 4398; 4207; 4398; 4398; 4398;
   4398; 4208; 4398; 4398; 4398; 4398; 4398; 4398; 4398; 4398; 4398; 4398; 5128; 5213; 5223;
   4434; 5431; 4229; 4207; 5434; 5128; 5213; 5223; 4434; 5431; 5128; 5213; 5223; 4434; 5431;
   4210; 5128; 5213; 5223; 4434; 5431; 5128; 5213; 5223; 4434; 5431; 4209; 5128; 5213; 5223;
   4434; 5431; 4209; 5223; 4434; 5223; 4208; 5223; 5223; 5223; 4201; 5223; 4202; 5223; 4203;
   5223; 4204; 5223; 4205; 5223; 5223; 4207; 5223; 5223; 5223; 5223; 4208; 5223; 5223; 4765;
   5223; 5223; 4766; 5223; 5223; 4210; 5223; 5223; 5223; 5223; 5223; 5223; 5223; 5223; 5223;
   5223; 5223; 5223; 5223; 5223; 5223; 5223; 5223; 5223; 5223; 5223; 5223; 5223; 5223; 5223;
   5223; 5223; 5223; 2851; 4209; 5431; 2859; 4201; 5223; 4203; 1290; 2894; 2859; 2886; 2869;
   2879; 2911; 2911; 2859; 2892; 2892; 2894; 2869; 1217; 2893; 5545; 2879; 2893; 5548; 2892
  ].

(** States 5550 to 5699. *)
Definition ts_primary_state_ids_5550 : list Z :=
  [
   2911; 2894; 2892; 2900; 2911; 2892; 2869; 2894; 2879; 2893; 2886; 2851; 2900; 2869; 5564;
   2879; 2893; 2900; 2851; 2879; 2886; 5548; 2851; 2859; 2900; 2859; 5576; 2893; 2851; 2911;
   2911; 2892; 2894; 2859; 2892; 2886; 2894; 2894; 5576; 2869; 1273; 2859; 2879; 2893; 5548;
   2886; 5596; 2851; 2869; 2879; 2859; 2869; 1217; 2900; 1277; 1288; 1289; 2894; 2869; 2900;
   5610; 1292; 1293; 5613; 1294; 2879; 1297; 1209; 2893; 1298; 1299; 2851; 1217; 1300; 2859;
   5625; 1301; 1302; 5548; 1303; 2851; 2886; 1304; 1284; 2893; 1305; 5636; 1248; 1286; 1278;
   1296; 2859; 1210; 1227; 1229; 1232; 1240; 1245; 1251; 1285; 1252; 1256; 2900; 1264; 1268;
   2886; 1269; 1270; 5576; 2886; 5576; 2900; 2886; 2911; 2892; 5665; 3137; 2900; 2911; 2892;
   5670; 2894; 2869; 5673; 2879; 2893; 2851; 2851; 2911; 1291; 1209; 1293; 2900; 5683; 2886;
   5685; 1294; 2859; 2851; 5685; 2911; 2911; 1305; 2892; 2892; 1232; 1240; 971; 1245; 2911
  ].

(** States 5700 to 5849. *)
Definition ts_primary_state_ids_5700 : list Z :=
  [
   2894; 2869; 2911; 2892; 1251; 1252; 1256; 2892; 5708; 1297; 2879; 2893; 2894; 2869; 1248;
   2900; 2851; 1269; 1290; 2859; 2859; 2886; 1270; 5723; 2851; 1273; 2886; 2879; 2851; 2859;
   2893; 1298; 1299; 2894; 1300; 1301; 1284; 2869; 1302; 2900; 1285; 2900; 5742; 2892; 1286;
   2879; 2894; 2869; 2893; 2893; 1278; 1296; 2900; 2886; 2851; 2894; 2859; 2911; 2869; 2892;
   2879; 2900; 2859; 1264; 1268; 2886; 5766; 1210; 2851; 2859; 5685; 5625; 5772; 2886; 2859;
   5685; 2911; 2911; 2894; 2900; 2892; 2869; 2911; 2892; 1277; 2894; 2869; 1291; 1303; 5789;
   2894; 2869; 1292; 5793; 2879; 1304; 2879; 1227; 2851; 2893; 1288; 2879; 2879; 2893; 1289;
   2893; 2886; 1321; 2893; 1229; 2886; 2851; 2900; 5813; 1285; 1298; 3626; 1299; 1300; 1301;
   3468; 1302; 3629; 1303; 1291; 1292; 3408; 3464; 3466; 3418; 1304; 1305; 1248; 1286; 2886;
   3422; 1290; 2900; 1278; 1296; 1210; 1293; 2893; 3426; 1229; 1232; 1294; 1240; 1247; 1245
  ].

(** States 5850 to 5999. *)
Definition ts_primary_state_ids_5850 : list Z :=
  [
   2911; 1217; 5813; 3395; 2851; 1251; 1288; 1273; 1252; 1256; 2894; 1217; 1289; 2869; 1277;
   1297; 1264; 3427; 2892; 1268; 3447; 1269; 1209; 1284; 2859; 1270; 2879; 1227; 1268; 3636;
   1252; 3644; 1286; 1298; 1256; 1277; 5742; 1289; 1269; 1251; 1305; 3511; 1288; 1264; 5789;
   2900; 2894; 1289; 5898; 1291; 1292; 5625; 1284; 3758; 1252; 1227; 1285; 5813; 1217; 2869;
   1290; 971; 1291; 1300; 1277; 1292; 1248; 3478; 1245; 3519; 1293; 1294; 5922; 1268; 2893;
   1321; 1229; 3509; 1278; 1297; 1209; 1240; 1296; 1285; 1210; 1273; 1301; 3560; 2886; 1297;
   1209; 3486; 3664; 3618; 5793; 2892; 1302; 1273; 3491; 3635; 3652; 1256; 1298; 1299; 5625;
   1300; 1301; 3657; 1302; 2833; 3648; 3732; 1303; 1290; 1294; 1217; 1303; 3645; 1288; 5813;
   1217; 1304; 799; 2879; 3500; 3494; 2834; 3663; 1305; 1293; 1248; 1286; 1278; 1264; 1251;
   1299; 1296; 1210; 1227; 1270; 1229; 1284; 1270; 1232; 1240; 1269; 1245; 2911; 3495; 1304
  ].

(** States 6000 to 6149. *)
Definition ts_primary_state_ids_6000 : list Z :=
  [
   3554; 3499; 1232; 1305; 1285; 4089; 1268; 1304; 1288; 1289; 1302; 1273; 1290; 1291; 1292;
   1293; 1294; 1297; 1209; 1298; 1299; 1209; 1300; 1301; 1302; 1217; 1303; 1304; 1269; 1305;
   1248; 1286; 1278; 1296; 1210; 1227; 1229; 5789; 5766; 1298; 1232; 1240; 1245; 1251; 1252;
   1256; 1264; 1217; 1268; 1269; 1270; 1270; 1277; 1217; 1299; 1273; 1300; 1232; 1217; 1240;
   1248; 1277; 1245; 4088; 1286; 1278; 2833; 1288; 1289; 2834; 1290; 1296; 1251; 1291; 1292;
   1303; 1294; 1288; 1289; 1252; 1256; 1210; 1301; 1297; 1209; 1227; 1298; 1299; 1300; 1301;
   1302; 1303; 1290; 1304; 1305; 1248; 1286; 1278; 1296; 1210; 1227; 1229; 5742; 1232; 1240;
   1245; 1251; 1252; 1256; 1264; 1268; 1269; 1270; 1277; 5625; 1291; 1292; 5625; 1293; 1284;
   1294; 1284; 5683; 971; 1273; 1285; 5708; 5625; 1217; 5813; 1264; 5793; 1217; 1285; 1297;
   1229; 1284; 1293; 1286; 1269; 6140; 1301; 1252; 1256; 1285; 971; 1248; 1292; 6140; 6140
  ].

(** States 6150 to 6299. *)
Definition ts_primary_state_ids_6150 : list Z :=
  [
   6150; 1304; 6140; 1299; 1270; 1273; 5813; 6140; 5813; 971; 6140; 1294; 1264; 1298; 1290;
   6140; 5708; 1247; 6140; 1290; 6150; 6140; 1286; 6140; 1270; 1278; 6140; 1296; 2833; 1304;
   2834; 1284; 5813; 6140; 1264; 1303; 1240; 5625; 1298; 1291; 6140; 6150; 6140; 6140; 5793;
   1299; 1227; 1300; 6140; 1229; 6140; 6201; 1284; 1245; 6140; 1292; 6140; 1291; 1210; 5789;
   1285; 6140; 1217; 1277; 1277; 1288; 1289; 1301; 1302; 6140; 1290; 1293; 1291; 5793; 6140;
   5742; 1292; 5789; 1293; 1294; 1294; 5766; 1297; 1209; 6140; 1297; 1209; 1302; 1288; 6239;
   1298; 1299; 1300; 1301; 1302; 6140; 1303; 6140; 2833; 6249; 1285; 6140; 6140; 1305; 1248;
   1286; 1278; 5625; 6140; 1296; 2834; 1210; 1227; 1229; 6140; 1232; 1240; 1245; 6140; 1251;
   1252; 6140; 1256; 1277; 1264; 6140; 1268; 1269; 1270; 6140; 1251; 6140; 1293; 6140; 6140;
   1284; 6140; 6140; 1232; 1240; 5813; 1245; 6140; 6150; 6140; 1303; 6140; 5766; 1305; 6140
  ].

(** States 6300 to 6449. *)
Definition ts_primary_state_ids_6300 : list Z :=
  [
   1251; 6140; 1252; 5683; 6140; 1268; 6140; 5708; 1269; 1268; 6239; 6140; 1256; 5625; 6314;
   6140; 1248; 6239; 1278; 1296; 1210; 1288; 1227; 6140; 1229; 6140; 1289; 5683; 6328; 6329;
   1297; 1273; 1209; 1289; 1305; 6140; 6239; 6140; 1217; 1300; 1273; 5742; 1232; 1304; 1305;
   1273; 5813; 1268; 1289; 1264; 6350; 6351; 6351; 1298; 6354; 5813; 1304; 1302; 6358; 6358;
   1247; 1299; 1299; 6358; 1248; 1286; 1300; 6367; 1305; 1301; 6351; 6351; 1248; 1278; 5625;
   1286; 1288; 6358; 1296; 1269; 1278; 3137; 1302; 1300; 1273; 1290; 1296; 6351; 2833; 1210;
   1227; 1210; 1227; 1229; 5813; 2834; 1229; 1301; 1232; 6358; 6400; 1240; 1245; 1294; 6404;
   1251; 1285; 1252; 1256; 1284; 1264; 1268; 1217; 5793; 1303; 1269; 2833; 1232; 2834; 1297;
   1240; 6421; 1245; 5742; 1251; 1209; 6404; 1270; 1285; 1252; 1277; 1256; 6404; 6433; 1288;
   1289; 1291; 1292; 5813; 971; 1290; 1298; 1304; 5789; 6404; 1291; 1292; 1217; 1293; 1294
  ].

(** States 6450 to 6599. *)
Definition ts_primary_state_ids_6450 : list Z :=
  [
   1303; 1277; 1293; 6453; 1297; 1209; 6456; 1284; 6458; 1270; 6460; 1229; 6460; 1277; 6460;
   1273; 6460; 1298; 1232; 6469; 1240; 1245; 1299; 1300; 1301; 6475; 1285; 1302; 6460; 2833;
   5813; 2834; 6469; 6460; 1303; 6460; 6460; 1304; 6460; 1251; 1284; 1305; 1248; 6460; 1252;
   1290; 6496; 1286; 1278; 1296; 1256; 1210; 1227; 1229; 6469; 6460; 1232; 1264; 1268; 1294;
   6460; 2834; 1240; 6460; 1269; 1270; 1245; 1302; 6460; 1251; 1285; 6460; 5813; 1252; 1256;
   1264; 1268; 6469; 6460; 1303; 1269; 1270; 1277; 6460; 2833; 6460; 6460; 1288; 6460; 1289;
   6460; 2833; 6460; 6460; 1227; 6460; 6460; 6460; 6460; 1299; 5813; 6460; 1290; 1304; 6460;
   6460; 6460; 6460; 6460; 1291; 6460; 3137; 1292; 6460; 6460; 6460; 1300; 1297; 6460; 2834;
   6460; 1293; 1294; 6460; 6460; 2834; 6460; 1209; 6460; 1247; 6460; 6460; 6460; 6460; 6460;
   6585; 6586; 1301; 6469; 6460; 1292; 2833; 1293; 6593; 6460; 6460; 1305; 1288; 1248; 1286
  ].

(** States 6600 to 6749. *)
Definition ts_primary_state_ids_6600 : list Z :=
  [
   1289; 1278; 1217; 1284; 1273; 1296; 6469; 1297; 1209; 1217; 1210; 1291; 1298; 6613; 6614;
   6329; 6616; 6617; 6616; 6328; 6616; 6621; 6616; 6623; 6614; 1297; 1209; 6613; 6613; 6621;
   6621; 6617; 6616; 6621; 6617; 2834; 6623; 6614; 6617; 6617; 3137; 6617; 6614; 3468; 6613;
   1298; 1299; 6616; 6613; 1300; 2833; 6616; 1301; 6623; 6623; 6613; 6621; 6613; 6621; 6614;
   1302; 6621; 6616; 6616; 2833; 6613; 6623; 6614; 6617; 6623; 6617; 6614; 6614; 6617; 6616;
   1303; 3408; 3418; 6613; 6621; 1304; 6621; 3422; 6623; 6614; 6617; 1305; 6616; 1248; 6616;
   6613; 1286; 6613; 6621; 6613; 6623; 6614; 6617; 6621; 1278; 6616; 6613; 1284; 1296; 6613;
   6621; 3137; 6621; 6616; 6623; 6614; 6617; 6623; 6613; 6613; 6616; 2834; 6621; 6621; 6613;
   6621; 6621; 6623; 6614; 6617; 3427; 6614; 6616; 6616; 6613; 6621; 1210; 6623; 6614; 6617;
   6623; 6614; 1227; 6616; 6623; 6617; 6613; 6621; 1229; 6623; 6614; 6617; 1277; 6623; 3426
  ].

(** States 6750 to 6899. *)
Definition ts_primary_state_ids_6750 : list Z :=
  [
   6616; 6614; 6617; 1285; 6613; 6621; 6623; 6614; 6617; 6616; 2834; 6617; 6616; 6617; 1273;
   6623; 6613; 6621; 1232; 6623; 6614; 6617; 6613; 6616; 6616; 6623; 6614; 6623; 6614; 6621;
   6613; 6623; 6614; 6617; 6621; 6621; 6616; 6613; 1240; 6613; 6621; 1245; 6623; 6614; 6617;
   6614; 6623; 6616; 5813; 1251; 6613; 6621; 6623; 6614; 6617; 1252; 6616; 1256; 6616; 6621;
   6623; 6613; 6621; 6614; 6623; 6614; 6617; 6614; 6616; 6623; 6616; 6621; 3447; 1264; 6613;
   6621; 1268; 6623; 6614; 6617; 1269; 6623; 6617; 6617; 1270; 6613; 6621; 6613; 6623; 6614;
   6617; 6621; 3626; 6616; 6844; 6613; 6621; 6623; 6614; 6617; 3629; 6614; 2834; 6616; 6617;
   6613; 6613; 6621; 6623; 6614; 6617; 6623; 6614; 6616; 6621; 6613; 6621; 6623; 6614; 6617;
   6617; 1288; 6616; 1289; 6616; 6616; 6616; 6623; 6613; 6621; 6614; 6623; 6614; 6617; 3466;
   6616; 3464; 2834; 6613; 6621; 6623; 6614; 6617; 6623; 6617; 6616; 6613; 6621; 6613; 6623
  ].

(** States 6900 to 7049. *)
Definition ts_primary_state_ids_6900 : list Z :=
  [
   6614; 6617; 6614; 6614; 6616; 6623; 6621; 6616; 6613; 6621; 6614; 6623; 6614; 6617; 6617;
   2833; 6616; 6623; 6613; 6621; 6617; 6623; 6614; 6617; 6614; 6623; 6616; 6617; 6614; 6613;
   6613; 6621; 6623; 6614; 6617; 6617; 6621; 3395; 6616; 6617; 6623; 6613; 6614; 6623; 6616;
   1290; 2833; 6617; 6613; 6621; 2833; 6613; 6616; 6616; 6623; 6614; 6616; 6617; 6614; 6617;
   1291; 1292; 6613; 6613; 6621; 6613; 2834; 2833; 6616; 6621; 6616; 6621; 1293; 6617; 1294;
   6613; 6621; 6623; 6614; 6613; 6621; 6613; 6617; 6621; 6616; 6623; 6616; 3648; 3635; 3636;
   3664; 3511; 3618; 6993; 2833; 3491; 3500; 2834; 3468; 3645; 3408; 3519; 3644; 3447; 3418;
   3422; 3663; 3657; 3137; 7009; 3426; 2833; 5922; 3466; 2833; 6249; 3494; 6249; 3427; 6844;
   3464; 2834; 3554; 6844; 3495; 3509; 3732; 3652; 2834; 3629; 3626; 7031; 3137; 3478; 3560;
   6249; 3499; 3395; 3486; 3758; 3629; 3137; 3626; 3511; 3732; 3418; 3554; 3509; 3644; 2834
  ].

(** States 7050 to 7199. *)
Definition ts_primary_state_ids_7050 : list Z :=
  [
   3137; 3426; 7052; 3519; 3466; 3447; 3657; 7057; 3418; 3652; 3486; 7061; 2834; 3495; 3635;
   3500; 3499; 7067; 2833; 5922; 3636; 7071; 3137; 3645; 2834; 3422; 3464; 3560; 3426; 3395;
   3629; 3468; 3663; 7083; 3618; 3491; 3466; 3137; 3427; 3395; 3408; 3648; 3664; 3447; 3478;
   3464; 3422; 7097; 2833; 7099; 2833; 3494; 3758; 3468; 7104; 3408; 3626; 3560; 4088; 4089;
   5922; 3635; 3636; 3644; 3645; 3648; 3652; 3657; 3663; 3664; 3732; 3758; 3478; 3486; 3491;
   3494; 3495; 3499; 3500; 3509; 3511; 3519; 3618; 3464; 3554; 3560; 3626; 3629; 3466; 3137;
   3468; 3408; 3418; 3422; 3427; 3426; 3447; 3395; 3427; 3464; 3427; 3626; 3629; 3466; 3468;
   3408; 3418; 3422; 3426; 3447; 3395; 2833; 2834; 3427; 3137; 3137; 2833; 3426; 3137; 2833;
   2834; 5922; 3635; 3636; 3644; 3645; 3648; 3652; 3657; 3663; 3664; 3732; 3758; 3478; 3486;
   3491; 3494; 3495; 3499; 3500; 3509; 3511; 3519; 2833; 2834; 3554; 3618; 3137; 6844; 7199
  ].

(** States 7200 to 7349. *)
Definition ts_primary_state_ids_7200 : list Z :=
  [
   6844; 2833; 2834; 2833; 2834; 3137; 7206; 2833; 2834; 7199; 3466; 3468; 3408; 3418; 3422;
   3447; 3395; 2833; 2834; 2833; 2834; 7206; 3464; 2834; 137; 3447; 3395; 5922; 3635; 3636;
   3644; 3645; 3648; 3652; 3657; 3663; 3664; 3732; 3758; 3478; 3486; 3491; 3494; 3495; 3499;
   3500; 3509; 3511; 3519; 5922; 3618; 3635; 3636; 3554; 3560; 3427; 3644; 2833; 2834; 3466;
   2833; 2834; 3645; 3648; 6844; 3137; 3464; 3652; 3137; 3626; 3629; 3466; 3657; 3468; 3408;
   3418; 3422; 3426; 3447; 3395; 2833; 3663; 3664; 7283; 2834; 3732; 2833; 3758; 3478; 3486;
   3491; 3494; 3495; 3499; 3500; 3509; 3426; 3519; 2833; 3618; 2833; 2834; 3427; 3554; 2833;
   2834; 2834; 3626; 3629; 3464; 6844; 3468; 3408; 3418; 3422; 3427; 3426; 3447; 3395; 6844;
   3560; 2833; 3464; 2834; 3626; 3629; 3466; 7206; 2833; 2834; 2834; 3468; 3408; 3418; 4088;
   4089; 3464; 146; 6844; 3626; 3629; 3466; 163; 3468; 3408; 3418; 3422; 3426; 3447; 3395
  ].

(** States 7350 to 7499. *)
Definition ts_primary_state_ids_7350 : list Z :=
  [
   3422; 3137; 3427; 3511; 137; 3464; 3519; 3732; 3427; 3758; 3478; 3486; 3491; 3466; 3494;
   3495; 3499; 3500; 3509; 3511; 3519; 3626; 3629; 3466; 3468; 3408; 3464; 3426; 3447; 3418;
   3554; 3395; 3422; 6844; 3626; 3468; 3426; 3560; 3447; 3629; 3395; 3447; 146; 2833; 2834;
   163; 3427; 7397; 3478; 3626; 3629; 3466; 3408; 3395; 146; 3464; 3468; 3408; 3418; 3422;
   3426; 3447; 3395; 3137; 6844; 3626; 3618; 3629; 3560; 163; 3427; 3626; 6844; 2834; 3629;
   3466; 3618; 5922; 3635; 3636; 3626; 3644; 6844; 3645; 2834; 7435; 3648; 3652; 3657; 3663;
   3664; 3464; 3468; 3408; 3418; 3732; 3422; 3426; 3758; 3478; 3464; 3486; 3491; 3447; 3494;
   3495; 3499; 3500; 3509; 3511; 3468; 3408; 3418; 3519; 3422; 3395; 3511; 2833; 2834; 3554;
   3560; 3427; 3426; 3629; 3618; 137; 3395; 2833; 3466; 3464; 2834; 3137; 3468; 3408; 3418;
   3422; 5922; 3635; 3427; 3426; 2833; 2834; 3636; 3427; 3644; 3645; 3648; 3652; 3657; 3663
  ].

(** States 7500 to 7649. *)
Definition ts_primary_state_ids_7500 : list Z :=
  [
   3664; 3418; 4088; 4089; 3486; 3447; 3491; 3758; 2833; 3494; 2834; 6844; 3495; 3554; 3499;
   3500; 5922; 2833; 5922; 3635; 3636; 3644; 3645; 3635; 2834; 3648; 3652; 3657; 3663; 3664;
   3636; 3644; 3645; 3466; 3732; 3648; 3758; 3478; 3486; 3491; 3652; 3494; 3495; 3499; 3137;
   3500; 3509; 3511; 2833; 3519; 3657; 3663; 3618; 3664; 3554; 3732; 2833; 3560; 3509; 3422;
   3137; 3464; 3500; 3509; 3626; 3629; 3466; 3468; 3408; 3418; 3618; 3422; 3426; 3447; 3395;
   5922; 3635; 3636; 3644; 5922; 3645; 3635; 3636; 3648; 3652; 3657; 3663; 3664; 3732; 3758;
   3644; 3478; 3486; 3491; 3494; 3495; 3499; 3500; 3509; 3511; 3519; 3137; 3645; 3554; 3560;
   3648; 3427; 3652; 3657; 3663; 3664; 3732; 3618; 3626; 3629; 3511; 3758; 3478; 3486; 3491;
   5922; 3494; 3495; 3499; 3464; 4088; 3635; 3636; 3500; 3509; 3644; 3645; 3137; 3511; 3648;
   3652; 3657; 3663; 7638; 3664; 7640; 7641; 3494; 3495; 3499; 3732; 3560; 7647; 3758; 3478
  ].

(** States 7650 to 7799. *)
Definition ts_primary_state_ids_7650 : list Z :=
  [
   3486; 4089; 3491; 3494; 3495; 3499; 3500; 3509; 3511; 3519; 3618; 3519; 5922; 3635; 3636;
   3644; 3137; 3645; 3648; 3648; 3652; 3657; 3663; 3664; 3554; 3491; 3732; 3758; 3478; 3486;
   4088; 3137; 3494; 3495; 3499; 3500; 3509; 3511; 3519; 3554; 3560; 3652; 3560; 5922; 3618;
   3468; 3408; 3418; 3422; 3427; 3635; 3426; 3657; 3636; 3644; 3645; 3648; 3652; 3657; 3663;
   3664; 6844; 3554; 3732; 3758; 3478; 3486; 3491; 3494; 3495; 3499; 3560; 3447; 3500; 3509;
   6844; 3511; 3519; 3663; 3554; 3664; 5922; 3560; 3732; 3618; 7206; 3137; 3519; 3395; 7199;
   3635; 3636; 3618; 3137; 3644; 6844; 7199; 3137; 3645; 7199; 3137; 7751; 7206; 4089; 3464;
   3626; 3629; 3466; 7758; 3468; 3408; 3418; 3422; 3426; 7764; 3466; 3447; 3395; 7206; 2833;
   3758; 4088; 3478; 2834; 4089; 3486; 3427; 3554; 3491; 3500; 3478; 3395; 3427; 7199; 7206;
   7199; 3466; 5922; 3486; 3464; 3635; 3636; 3560; 7793; 3137; 3468; 3408; 3491; 3418; 3494
  ].

(** States 7800 to 7949. *)
Definition ts_primary_state_ids_7800 : list Z :=
  [
   3495; 3732; 3499; 3422; 3645; 3466; 3758; 3478; 3486; 3464; 3491; 3427; 7812; 3629; 3494;
   7206; 3500; 3509; 3626; 3495; 3511; 3629; 3466; 3499; 3500; 3509; 3511; 3519; 3618; 3519;
   3426; 3648; 3137; 7199; 5922; 3635; 4088; 4089; 3652; 3636; 3644; 3657; 3137; 3468; 3554;
   3408; 7793; 3137; 3418; 3560; 7206; 3422; 3137; 3426; 3447; 3137; 3137; 3663; 3664; 3137;
   4088; 4089; 3644; 3426; 7206; 3645; 5922; 3635; 3636; 3644; 3645; 3732; 3648; 3652; 3657;
   3626; 3663; 3664; 3554; 7206; 3648; 3629; 3652; 3732; 7884; 3758; 3478; 3486; 3618; 7206;
   3491; 7199; 3494; 3495; 3499; 3466; 3509; 3511; 719; 3519; 3657; 3618; 3663; 3664; 739;
   742; 3554; 3447; 3464; 3560; 3408; 3468; 3418; 771; 793; 3422; 7199; 3137; 3447; 4088;
   3758; 4089; 3626; 3395; 3395; 7206; 3663; 771; 739; 3648; 742; 3664; 3554; 793; 3468; 3408;
   3418; 3422; 3447; 3426; 3758; 3478; 3511; 3447; 3395; 3560; 7946; 3464; 7199; 3427
  ].

(** States 7950 to 8099. *)
Definition ts_primary_state_ids_7950 : list Z :=
  [
   3648; 3464; 742; 3652; 3626; 3657; 3629; 3466; 3560; 3519; 3663; 3464; 719; 7963; 3468;
   3408; 3418; 7199; 3422; 7206; 771; 793; 7972; 3426; 3486; 3447; 3395; 4088; 7199; 7206;
   3664; 3626; 4088; 3395; 7199; 7206; 4089; 3629; 3468; 7199; 3466; 3137; 3427; 7199; 7206;
   3618; 3408; 7199; 7199; 7206; 7199; 7206; 7199; 3466; 3626; 3629; 3466; 5922; 7199; 3635;
   3636; 3468; 3408; 3418; 3422; 3426; 3447; 3395; 3464; 7206; 7206; 3644; 3464; 3137; 3137;
   5922; 3645; 3635; 4088; 4089; 3626; 3629; 7206; 3466; 3732; 3636; 3648; 8037; 8038; 3468;
   3408; 3418; 3422; 3426; 7199; 3732; 3447; 3652; 3395; 3657; 3626; 3629; 3663; 3664; 3427;
   3418; 3464; 3644; 7206; 3464; 3618; 7199; 7946; 7199; 7963; 7972; 3468; 3408; 3418; 3422;
   3427; 3426; 3626; 3629; 3466; 3464; 3137; 3732; 3468; 3408; 3418; 3422; 3426; 3447; 3447;
   3758; 3395; 3478; 3486; 3491; 3494; 3495; 3626; 3629; 7206; 3466; 3499; 3500; 3468; 3408
  ].

(** States 8100 to 8249. *)
Definition ts_primary_state_ids_8100 : list Z :=
  [
   3418; 3422; 3427; 3426; 3447; 3509; 3511; 3395; 3427; 3519; 3427; 3422; 7206; 3395; 7206;
   3491; 3464; 3137; 3137; 3426; 3758; 3494; 3554; 3495; 3478; 3499; 3500; 3509; 7206; 3618;
   3486; 3491; 3645; 3494; 4088; 3495; 3499; 719; 4089; 3652; 7206; 3554; 3560; 3500; 4089;
   3137; 3509; 3427; 3626; 3629; 3466; 3511; 5922; 739; 3519; 3635; 3468; 3636; 7793; 3408;
   3418; 3422; 3644; 3426; 3137; 7199; 3645; 3626; 3629; 3447; 3466; 3395; 3657; 7206; 3652;
   3509; 3464; 3648; 3426; 8179; 3652; 3464; 8182; 3657; 3663; 3554; 8179; 3427; 3560; 8179;
   3664; 8179; 3500; 8179; 3509; 8179; 3511; 3519; 3645; 3626; 3618; 3629; 5922; 3635; 3636;
   3464; 3644; 3466; 8179; 3645; 8210; 3732; 3648; 3652; 8179; 3657; 3663; 3664; 3511; 3447;
   8210; 3648; 146; 3732; 3758; 8179; 3758; 3478; 8228; 3478; 3486; 3732; 3491; 3486; 3494;
   3495; 3499; 8179; 3645; 3491; 3500; 3509; 3511; 163; 8179; 3519; 3652; 146; 3626; 3629
  ].

(** States 8250 to 8399. *)
Definition ts_primary_state_ids_8250 : list Z :=
  [
   8179; 3494; 3466; 3427; 8179; 3495; 3499; 8179; 3618; 3554; 3500; 163; 3468; 8179; 3408;
   3418; 3422; 3509; 3426; 3560; 3511; 5922; 3635; 3447; 3636; 3519; 8276; 3648; 3645; 3468;
   3408; 3395; 137; 3626; 3494; 3629; 3657; 3466; 3626; 8037; 8290; 3629; 3427; 3648; 8294;
   3652; 3657; 3554; 8210; 3466; 3663; 3664; 3427; 3468; 3626; 3629; 3732; 3519; 3408; 3644;
   3466; 8179; 3560; 3663; 3618; 5922; 3635; 3636; 3418; 3644; 3464; 3645; 8322; 3427; 8228;
   3758; 3648; 3478; 3652; 3657; 3663; 3664; 3664; 3468; 3408; 3418; 3732; 8210; 3644; 3486;
   3758; 3478; 3468; 3486; 3491; 3758; 3494; 3495; 3499; 8349; 3491; 3422; 3500; 3494; 3509;
   3495; 3499; 3511; 3519; 3422; 3478; 8179; 3426; 3554; 3408; 3426; 8210; 3466; 8322; 3468;
   3408; 8228; 3560; 3447; 3618; 3663; 5922; 3635; 3636; 3644; 3418; 3645; 3418; 3554; 3648;
   3652; 3657; 3663; 3664; 3422; 8349; 8179; 3395; 3447; 3732; 3426; 146; 3560; 3422; 8322
  ].

(** States 8400 to 8549. *)
Definition ts_primary_state_ids_8400 : list Z :=
  [
   3758; 3478; 8228; 3486; 3491; 3395; 3494; 3495; 3499; 8210; 3554; 3509; 3511; 3560; 3519;
   8349; 3664; 3500; 8228; 3447; 3618; 8179; 3509; 3426; 3447; 3554; 3511; 8349; 3486; 3560;
   3491; 8349; 3395; 3427; 3626; 8349; 3519; 5922; 3427; 8349; 3626; 3629; 3629; 3466; 8210;
   3618; 3466; 3732; 3427; 8179; 8210; 3554; 3464; 8179; 8454; 3635; 8456; 3636; 3464; 3464;
   3468; 3408; 3418; 3422; 3466; 3426; 3618; 8179; 8349; 3560; 163; 3427; 5922; 8322; 3447;
   8179; 3418; 3635; 3395; 3636; 3644; 3618; 3644; 3636; 3645; 3491; 8486; 8487; 8179; 3648;
   3657; 3758; 3468; 137; 3408; 3418; 3422; 8179; 3652; 5922; 3657; 3426; 3395; 3663; 3447;
   3664; 3466; 3395; 3494; 8038; 3495; 3422; 3499; 3732; 3500; 3644; 3626; 8179; 5922; 3635;
   3636; 3758; 3644; 3635; 3645; 3648; 3395; 3652; 3657; 3478; 3618; 3663; 3664; 3486; 3491;
   3495; 3137; 8179; 3494; 3495; 3732; 3427; 3629; 3499; 4088; 3758; 3478; 3500; 137; 3427
  ].

(** States 8550 to 8699. *)
Definition ts_primary_state_ids_8550 : list Z :=
  [
   3478; 3509; 3486; 8179; 3511; 3491; 4089; 3519; 3554; 3494; 3495; 3499; 3464; 3500; 3645;
   3509; 3395; 3511; 3519; 8569; 3468; 3418; 3422; 3447; 3395; 7946; 3486; 8179; 3427; 5922;
   3560; 3635; 3626; 3629; 3466; 3408; 3426; 3464; 3499; 3468; 3408; 3418; 7963; 3422; 3636;
   3426; 7972; 3447; 3464; 3500; 3426; 3618; 3519; 3554; 3560; 8605; 8487; 8607; 8608; 8609;
   8610; 8611; 8612; 8613; 3648; 3652; 8607; 8487; 3657; 3663; 3664; 8487; 3618; 8607; 8608;
   8609; 8610; 8611; 8612; 8613; 3618; 8487; 8607; 8608; 8609; 8610; 8611; 8612; 8613; 3626;
   8487; 8607; 8608; 3732; 3629; 8609; 8610; 8612; 8613; 3466; 3626; 8487; 3629; 8607; 7793;
   8609; 8608; 8613; 8613; 8487; 8607; 3427; 8609; 8613; 3554; 3464; 8666; 8667; 8668; 5922;
   3635; 3636; 7793; 3644; 3464; 3626; 3758; 3629; 3478; 3645; 3466; 3468; 3408; 3418; 3422;
   3648; 3426; 3652; 3447; 3657; 3663; 3395; 3664; 3468; 3408; 3486; 3418; 3732; 3422; 8609
  ].

(** States 8700 to 8849. *)
Definition ts_primary_state_ids_8700 : list Z :=
  [
   3758; 3478; 3626; 3629; 3427; 3466; 3426; 3554; 3491; 3486; 5922; 3635; 3636; 3644; 3491;
   3645; 5922; 3635; 3636; 3464; 3648; 3644; 3652; 3645; 3657; 3663; 3664; 3494; 3648; 3652;
   3657; 3663; 3664; 3495; 3732; 3732; 3468; 3758; 3758; 3478; 3408; 3478; 3486; 3486; 3491;
   3491; 3494; 3495; 3499; 3418; 3494; 3495; 3499; 3500; 3509; 3500; 3511; 3509; 3519; 3511;
   3519; 3626; 3629; 3499; 3466; 3618; 3422; 3426; 3554; 3494; 3468; 3408; 3418; 3422; 3426;
   3560; 3447; 3447; 3554; 3395; 3395; 3495; 3499; 3500; 3509; 3560; 3511; 8486; 3519; 3645;
   3560; 3427; 3618; 5922; 3635; 3636; 3644; 3447; 3645; 3468; 3418; 3422; 3447; 3395; 3466;
   3648; 3468; 3408; 3418; 3422; 3447; 3395; 3652; 3657; 3663; 3664; 3732; 3758; 8486; 8819;
   3478; 3486; 3491; 3494; 3495; 3464; 3499; 3395; 3500; 3509; 3554; 3511; 3519; 8486; 3554;
   3464; 5922; 3635; 3636; 3644; 3560; 3626; 3629; 8486; 3466; 3500; 3509; 3464; 3645; 3648
  ].

(** States 8850 to 8999. *)
Definition ts_primary_state_ids_8850 : list Z :=
  [
   3652; 3468; 3408; 3418; 3422; 3426; 3657; 8486; 3447; 3618; 5922; 3635; 8486; 3395; 3626;
   3629; 3636; 3466; 3663; 7793; 3644; 3664; 8610; 3468; 3408; 3418; 8611; 3422; 3426; 3645;
   8612; 3447; 3395; 3648; 3652; 3657; 3663; 3664; 3732; 3618; 3732; 3758; 3478; 3486; 3491;
   3758; 3494; 3495; 3499; 3500; 3509; 3511; 3478; 3519; 3486; 3427; 3491; 3494; 3495; 3499;
   3500; 3509; 3511; 3519; 3560; 3554; 8486; 3427; 3511; 3560; 3554; 3464; 3560; 3427; 3618;
   3560; 3427; 5922; 3635; 3636; 3618; 5922; 3635; 3636; 3644; 3645; 3626; 3629; 3466; 8668;
   3648; 3464; 3464; 3652; 3657; 3663; 3664; 8668; 3468; 3408; 3418; 3422; 3644; 3426; 8668;
   8668; 3447; 8668; 8668; 3732; 8668; 3395; 8668; 8668; 8668; 8668; 8668; 8668; 8668; 8668;
   8668; 8668; 8668; 3519; 5922; 8668; 8668; 3635; 8668; 8668; 3636; 8668; 8668; 8668; 8668;
   3644; 8668; 8668; 8667; 3758; 3478; 3645; 8667; 8667; 3648; 3652; 8667; 3657; 3486; 8667
  ].

(** States 9000 to 9149. *)
Definition ts_primary_state_ids_9000 : list Z :=
  [
   3663; 3664; 3491; 3494; 3495; 8667; 3499; 3732; 3500; 8667; 3509; 3758; 3478; 3486; 3491;
   3494; 3495; 3499; 3511; 3500; 3509; 3511; 3519; 3554; 3648; 9025; 3652; 3657; 3663; 3664;
   8038; 9031; 3732; 3758; 3478; 3486; 3491; 3494; 3495; 3499; 3500; 3509; 3511; 3519; 3560;
   1297; 1209; 3732; 3554; 9049; 9050; 9051; 9052; 9053; 9054; 9025; 3560; 9057; 5922; 9059;
   3635; 3636; 3644; 3645; 1298; 1299; 1300; 1301; 1302; 9069; 7793; 1277; 3466; 9031; 3648;
   1303; 3466; 3652; 3657; 3663; 3664; 1304; 9050; 1305; 9050; 9051; 1248; 1286; 1278; 1296;
   7793; 1210; 9052; 9053; 9054; 9025; 9057; 9059; 1227; 1229; 7946; 9051; 1232; 5922; 9057;
   3635; 3636; 3732; 3644; 1240; 3645; 9059; 3648; 3652; 3657; 3663; 3664; 1245; 9031; 9052;
   3732; 1251; 9053; 3758; 3478; 3486; 3758; 3478; 3491; 3494; 3495; 3486; 3499; 3491; 3494;
   3495; 3499; 3500; 1252; 3509; 9031; 3500; 3511; 3509; 3511; 3519; 9054; 3519; 1256; 9025
  ].

(** States 9150 to 9299. *)
Definition ts_primary_state_ids_9150 : list Z :=
  [
   3618; 3618; 1288; 9057; 3554; 1247; 9050; 3758; 9051; 3478; 1264; 3560; 3447; 3486; 9052;
   9053; 9054; 9025; 3491; 9057; 9059; 3494; 3495; 1268; 3560; 9059; 1269; 1270; 7793; 1289;
   3618; 5922; 1290; 9031; 3499; 3500; 3635; 3509; 3511; 3636; 3464; 3644; 3519; 7793; 5922;
   1284; 3645; 7963; 7972; 9050; 9051; 9052; 9053; 9054; 9025; 8037; 9057; 9059; 3648; 3652;
   5922; 3635; 3636; 7946; 3644; 3657; 3645; 3648; 3652; 3657; 3663; 3664; 1217; 8037; 3663;
   3732; 3664; 8038; 3468; 3758; 3478; 3486; 3491; 3408; 3494; 3495; 3499; 3418; 3500; 3509;
   9031; 3511; 3422; 3519; 3732; 3427; 3426; 3618; 5922; 3635; 3636; 3644; 3635; 3645; 3554;
   7793; 3648; 3652; 7946; 3657; 3663; 3664; 9050; 9051; 3758; 3478; 3732; 3618; 9052; 9053;
   3560; 9054; 3758; 3478; 7963; 7972; 3486; 3491; 9025; 3494; 3495; 3499; 3500; 3509; 3511;
   3519; 9057; 9059; 7963; 3618; 7972; 3486; 3395; 9031; 3554; 3491; 3447; 3494; 3495; 3499
  ].

(** States 9300 to 9449. *)
Definition ts_primary_state_ids_9300 : list Z :=
  [
   4088; 3500; 3509; 3511; 3560; 4089; 9031; 9050; 3519; 3395; 3554; 3626; 3629; 9051; 3636;
   9031; 3644; 3464; 9318; 3645; 9320; 3554; 5922; 3635; 3636; 3644; 9031; 3645; 3648; 3652;
   3657; 3663; 3664; 3732; 1291; 9031; 3427; 3758; 3478; 3468; 3408; 3418; 3486; 3422; 3560;
   3427; 3426; 3491; 1285; 3494; 3495; 3499; 3500; 3509; 3511; 3519; 3648; 1292; 1273; 3652;
   9031; 3618; 9362; 3657; 9031; 1293; 1294; 3554; 3618; 1217; 9052; 5922; 3635; 3636; 3560;
   7793; 3644; 3663; 9053; 9379; 3664; 3645; 9054; 9031; 7793; 9385; 7946; 3554; 9388; 9385;
   9388; 4089; 9392; 7793; 9394; 7764; 9396; 9392; 9398; 9388; 9400; 9385; 9402; 9388; 9392;
   9405; 4088; 742; 7946; 9409; 9385; 9411; 3494; 739; 9385; 3519; 9409; 9417; 742; 7963;
   7963; 7972; 9422; 7972; 9388; 793; 8037; 9411; 9388; 9409; 9417; 9385; 7946; 7793; 9388;
   9388; 7946; 7793; 4088; 9396; 9385; 7963; 7972; 9385; 9388; 3468; 9446; 9385; 9388; 9385
  ].

(** States 9450 to 9599. *)
Definition ts_primary_state_ids_9450 : list Z :=
  [
   4089; 771; 9385; 793; 9388; 9388; 9385; 719; 9388; 9385; 9388; 9388; 9385; 9385; 9388;
   8037; 9385; 9388; 9392; 9388; 9385; 9385; 9388; 7963; 9385; 9385; 9388; 9388; 9385; 9388;
   9385; 9385; 9385; 9388; 9385; 9388; 3560; 9385; 7946; 9388; 7793; 3495; 7793; 9385; 9388;
   9392; 739; 9497; 9498; 9385; 9388; 9388; 9392; 9392; 7963; 9388; 7793; 9385; 9385; 719;
   9388; 9411; 771; 9385; 771; 9422; 3447; 4088; 9388; 9388; 9417; 3491; 793; 7793; 9385;
   3618; 7972; 5922; 3635; 3636; 9385; 3644; 9388; 3464; 7793; 9392; 3645; 9385; 7793; 3500;
   9388; 9385; 7793; 9385; 719; 9388; 8037; 4089; 7793; 9385; 9388; 3648; 8037; 9388; 3652;
   9392; 9385; 7793; 9385; 7793; 3657; 9388; 8038; 9385; 9388; 9385; 9388; 3663; 3664; 9388;
   8038; 7793; 9392; 9385; 9388; 9422; 3732; 1009; 9388; 9388; 3395; 9385; 9385; 9385; 3418;
   7963; 9388; 7972; 7972; 8038; 9388; 9385; 9388; 7793; 3758; 9595; 9385; 3478; 9388; 7946
  ].

(** States 9600 to 9749. *)
Definition ts_primary_state_ids_9600 : list Z :=
  [
   3511; 9385; 3422; 9385; 9385; 3499; 9388; 7751; 9396; 739; 9411; 3486; 742; 9388; 9388;
   3509; 9409; 9417; 7793; 9385; 9392; 7963; 9622; 4089; 7963; 9625; 7946; 9627; 4089; 9622;
   9630; 9631; 9625; 7963; 7972; 9400; 9636; 7972; 7963; 9625; 9622; 9641; 7946; 7946; 7946;
   9625; 7972; 7946; 7963; 9649; 9631; 7972; 1314; 7963; 9654; 7972; 9625; 7963; 9631; 9631;
   9630; 9630; 9654; 9663; 9625; 9625; 9622; 9630; 1347; 9631; 9631; 9631; 7946; 7963; 7972;
   9625; 8037; 9622; 7946; 9625; 9641; 9631; 9641; 9663; 9625; 1341; 8037; 9631; 9398; 9402;
   9654; 9400; 7764; 4088; 4089; 9631; 9625; 1308; 9654; 9654; 9663; 9622; 9625; 7751; 9654;
   7963; 7946; 7972; 7972; 7946; 9498; 9654; 7963; 8037; 9625; 7946; 9631; 9625; 7972; 9630;
   9405; 9663; 7963; 9446; 9631; 9725; 9641; 7963; 7751; 7972; 9398; 7972; 9663; 9631; 9654;
   9622; 1354; 7946; 4088; 9630; 9631; 9631; 9625; 9630; 971; 9654; 9625; 9622; 1366; 9625
  ].

(** States 9750 to 9899. *)
Definition ts_primary_state_ids_9750 : list Z :=
  [
   9625; 7972; 9631; 7963; 7972; 9625; 9622; 7963; 9631; 1320; 9663; 9654; 8038; 7946; 9622;
   7963; 9631; 9630; 9625; 7972; 9631; 9631; 4088; 9402; 9654; 7946; 9622; 9663; 7946; 9779;
   9625; 7946; 9641; 9631; 8037; 7963; 9631; 9641; 9631; 9654; 9625; 7946; 7764; 9631; 8038;
   7972; 9625; 9622; 9625; 8038; 9663; 7946; 9622; 9631; 9625; 9805; 9641; 9631; 9625; 7963;
   7972; 9641; 7972; 9631; 9631; 8038; 9625; 9394; 9654; 9625; 9820; 9625; 9622; 9631; 9654;
   9825; 9826; 9827; 9828; 9829; 9830; 9831; 9831; 799; 1366; 1309; 9836; 9837; 9837; 9839;
   9840; 9841; 9842; 9839; 9828; 9842; 9846; 1314; 9828; 9827; 9827; 9851; 9852; 9826; 9830;
   9827; 9831; 8038; 9830; 9831; 9840; 9841; 9839; 9842; 9828; 9830; 9851; 9839; 9827; 9852;
   9842; 9826; 9828; 9830; 9827; 9831; 9830; 9827; 9878; 9831; 9831; 9827; 9840; 9841; 9884;
   9839; 9842; 9887; 9830; 9830; 9828; 9831; 9839; 9851; 9827; 9852; 9826; 9827; 971; 9831
  ].

(** States 9900 to 10049. *)
Definition ts_primary_state_ids_9900 : list Z :=
  [
   9846; 1355; 9830; 9828; 1356; 9842; 9839; 9827; 9842; 9840; 9841; 9831; 9831; 9828; 9839;
   9827; 9842; 9851; 9828; 9852; 9826; 9828; 9827; 9831; 9827; 1347; 9829; 9836; 9831; 9830;
   9828; 9840; 9841; 9831; 1366; 9827; 9827; 9851; 9852; 9828; 9826; 9851; 9831; 9839; 9842;
   9830; 9828; 9828; 9846; 9827; 9831; 9831; 9828; 9840; 9841; 9839; 1314; 9842; 9851; 9827;
   9827; 9831; 9827; 9851; 9839; 9828; 9842; 9830; 9827; 9969; 9851; 9828; 9831; 9828; 9851;
   9831; 9828; 9851; 9829; 9827; 9836; 9831; 9851; 9839; 9842; 9828; 9830; 9828; 9988; 9851;
   9827; 9827; 9829; 9851; 9830; 9831; 9827; 9830; 9828; 9831; 9851; 9827; 9831; 9831; 9831;
   9836; 9828; 9851; 9831; 9851; 9839; 9828; 9842; 9827; 9851; 9852; 9828; 9851; 9830; 9831;
   9851; 4088; 9851; 9826; 9827; 9828; 9839; 9839; 9842; 9851; 9830; 9842; 9828; 9831; 9851;
   9831; 9837; 9831; 9839; 9842; 9851; 9828; 9851; 9828; 9851; 1321; 9831; 9851; 9827; 9828
  ].

(** States 10050 to 10199. *)
Definition ts_primary_state_ids_10050 : list Z :=
  [
   9830; 9828; 9825; 9827; 9831; 971; 9830; 10057; 9831; 9839; 9842; 9828; 9831; 9828; 10064;
   9827; 9831; 10067; 9830; 10069; 10070; 9827; 9831; 9828; 9837; 9830; 9846; 9825; 10064;
   9839; 9842; 9831; 9828; 9828; 9828; 9839; 9831; 9842; 9846; 9828; 9828; 9831; 10092; 9831;
   10094; 10095; 9828; 9828; 9831; 9825; 10064; 9827; 9828; 9830; 9827; 1347; 9831; 8037;
   9831; 9830; 9825; 10064; 9828; 9839; 9831; 9839; 9842; 9831; 9840; 9828; 9828; 1366; 9825;
   10064; 9842; 9851; 9827; 9841; 10128; 9852; 9825; 10064; 9826; 9828; 9825; 10064; 9827;
   9829; 9825; 10064; 9836; 9846; 9825; 9830; 9825; 9846; 9825; 1314; 9825; 9825; 9831; 9825;
   9829; 9830; 9825; 9825; 9839; 9825; 10158; 9842; 9825; 9839; 9842; 9828; 4089; 9825; 9828;
   9825; 9839; 9842; 9825; 9825; 9846; 9825; 9828; 9825; 9840; 9825; 9841; 9828; 9825; 9825;
   9827; 9825; 9825; 9825; 9825; 9825; 9825; 9825; 9825; 9825; 9825; 9825; 9825; 9825; 9825;
   9825; 9825; 9825
  ].

(** States 10200 to 10349. *)
Definition ts_primary_state_ids_10200 : list Z :=
  [
   9825; 9825; 9825; 9825; 9825; 9825; 9825; 9825; 9839; 9825; 9830; 9827; 9830; 9831; 9842;
   9829; 9831; 9825; 9839; 9842; 9831; 9839; 9842; 9839; 9842; 9828; 9836; 9836; 9827; 9828;
   9830; 9828; 9829; 9831; 9828; 9836; 9828; 9839; 9842; 9827; 9851; 9828; 971; 9830; 1347;
   9825; 9852; 10247; 10248; 1348; 1349; 1314; 1331; 1345; 1355; 10248; 10248; 10248; 1356;
   1349; 1350; 1352; 1353; 10248; 10248; 1351; 10248; 1314; 1357; 10248; 10248; 10248; 10248;
   10248; 10248; 10248; 8290; 10248; 10248; 10248; 10248; 1328; 1322; 1323; 1312; 1325; 10248;
   8182; 10248; 1347; 10248; 8294; 10248; 10248; 10248; 1326; 1329; 1327; 10248; 10248; 1326;
   971; 10248; 10248; 1347; 10248; 10248; 10248; 10248; 1366; 10248; 1330; 10248; 10248;
   10248; 1309; 10248; 1366; 10248; 10248; 10248; 1350; 10248; 1352; 10248; 1325; 2851; 10248;
   1312; 8276; 10248; 10248; 10248; 1323; 1335; 1322; 10248; 10248; 10248; 10248; 10248;
   10248; 971; 2859; 1335; 10248; 1345; 10248; 1009; 10158
  ].

(** States 10350 to 10499. *)
Definition ts_primary_state_ids_10350 : list Z :=
  [
   1009; 8819; 2834; 2833; 1009; 1009; 8666; 8182; 10358; 10359; 10360; 10361; 8276; 10363;
   10364; 1347; 10366; 10367; 2859; 10364; 8276; 2851; 10364; 10373; 971; 2859; 10376; 10377;
   1366; 1314; 10364; 1366; 2851; 10358; 8819; 8666; 1314; 1314; 8182; 1347; 10390; 2851;
   10364; 2859; 10394; 971; 10396; 1366; 10360; 1347; 10364; 971; 1355; 1335; 1349; 1345;
   1350; 1335; 1348; 1345; 1329; 1321; 1348; 1351; 1328; 1322; 1347; 1312; 1323; 1335; 1353;
   1312; 1326; 1322; 1323; 1325; 1327; 1328; 1366; 1329; 1330; 1314; 1327; 1357; 8182; 8666;
   1330; 1348; 1345; 1351; 1331; 1312; 3137; 1309; 1356; 1322; 1323; 1347; 1325; 1351; 971;
   1349; 1350; 1352; 1353; 1357; 1366; 1327; 1328; 1329; 971; 1349; 1331; 8276; 1314; 1350;
   10360; 1366; 1314; 1357; 1352; 10471; 1347; 1326; 971; 1326; 1353; 1330; 1331; 8819; 1325;
   1352; 2833; 8666; 2834; 8819; 10486; 8182; 10488; 10489; 10489; 10489; 8276; 10493; 10494;
   10495; 10496; 10359; 10495; 10489
  ].

(** States 10500 to 10649. *)
Definition ts_primary_state_ids_10500 : list Z :=
  [
   10500; 8276; 10502; 2834; 10504; 10358; 3618; 10360; 10500; 8182; 10510; 2833; 10500;
   10500; 10495; 8294; 10495; 8290; 2833; 8819; 8666; 2834; 8182; 8276; 8276; 10525; 8276;
   8290; 8819; 3137; 8182; 10531; 10531; 8294; 10360; 10525; 8182; 10359; 10358; 10539; 8666;
   10541; 10360; 10541; 8294; 8819; 8276; 8819; 8666; 10359; 8182; 10471; 8819; 8276; 8666;
   10360; 8276; 8182; 8666; 8290; 10358; 8182; 10562; 8182; 10562; 10565; 8276; 8666; 8294;
   8276; 8819; 8666; 8276; 8819; 10565; 8294; 8819; 3137; 10578; 10562; 8666; 8276; 10471;
   8182; 10584; 10578; 8182; 10360; 8290; 10589; 8290; 8290; 10592; 10578; 8182; 8294; 10565;
   10496; 10598; 10510; 8290; 10360; 10602; 8276; 8666; 10502; 8182; 10488; 10598; 8666; 8294;
   8276; 8182; 8819; 10504; 10615; 10616; 10617; 8290; 8294; 10486; 8819; 10541; 10623; 10602;
   8276; 8182; 10627; 8182; 8276; 8819; 8276; 10602; 3137; 8294; 8182; 10471; 10602; 10638;
   10598; 10640; 10641; 8819; 2833; 8290; 10598; 2834; 3618; 8666; 10602
  ].

(** States 10650 to 10799. *)
Definition ts_primary_state_ids_10650 : list Z :=
  [
   10598; 10651; 10652; 8294; 10541; 10602; 10598; 8666; 10658; 8819; 10660; 8182; 8294;
   10663; 10664; 10658; 10666; 10660; 10660; 10493; 10660; 10671; 10651; 8666; 10674; 10675;
   10676; 8819; 10678; 8819; 10367; 2889; 10660; 10660; 10684; 8276; 8182; 10687; 8666; 10471;
   10660; 10660; 10678; 8294; 10660; 8666; 10687; 10494; 8290; 8290; 8294; 10701; 10360;
   10390; 8819; 10705; 8819; 10707; 10678; 8182; 8666; 10658; 10373; 10713; 10541; 10687;
   10660; 8276; 8290; 10541; 8276; 8666; 10722; 10707; 8276; 10664; 10660; 8182; 10728; 10541;
   2888; 10731; 10732; 10733; 10734; 10735; 10736; 10737; 10738; 10732; 10734; 8276; 10738;
   8666; 10738; 10732; 10541; 10734; 10748; 10541; 10738; 10732; 10752; 10734; 10734; 8666;
   10756; 10757; 10758; 10759; 8294; 10738; 10732; 10763; 10732; 10734; 10734; 10767; 10738;
   8290; 10732; 10771; 10731; 10734; 10756; 10775; 10738; 10777; 10732; 10779; 10780; 10781;
   10734; 10783; 10784; 10738; 10732; 10756; 10734; 10771; 10752; 10738; 10732; 8819; 8290;
   10734; 10796; 10738; 10732; 10736
  ].

(** States 10800 to 10949. *)
Definition ts_primary_state_ids_10800 : list Z :=
  [
   10734; 10738; 10738; 10732; 10804; 10748; 10734; 10807; 2988; 10738; 10732; 10752; 8819;
   10813; 10734; 10815; 10758; 10817; 10738; 10819; 10732; 10781; 10822; 10781; 10759; 10734;
   10763; 10732; 10828; 10738; 10732; 10796; 10734; 10771; 10738; 2980; 10732; 10819; 10737;
   10771; 10771; 10734; 10737; 10738; 10732; 8819; 10734; 10734; 10848; 10738; 10732; 10734;
   10738; 10732; 10737; 10734; 10738; 10732; 10756; 10859; 10734; 10738; 10862; 10732; 10864;
   10734; 10738; 10732; 10868; 10734; 10738; 10871; 10872; 10780; 10734; 10738; 10876; 10734;
   10807; 10738; 10796; 10734; 10738; 10862; 10738; 10734; 10738; 10748; 10888; 10889; 10734;
   10738; 10734; 10738; 10784; 10734; 10759; 10897; 10738; 10752; 10734; 10738; 2833; 10734;
   10904; 3011; 10738; 10734; 10759; 10738; 10763; 10732; 10734; 10897; 10738; 10915; 10734;
   10738; 10734; 10738; 10872; 10921; 10734; 10738; 10734; 10925; 10752; 10738; 10734; 10929;
   10738; 10734; 10848; 10738; 10934; 10862; 10936; 10904; 10737; 10872; 10915; 10779; 10942;
   2834; 10944; 10733; 10783; 10763; 10734; 10734
  ].

(** States 10950 to 11099. *)
Definition ts_primary_state_ids_10950 : list Z :=
  [
   10756; 10934; 2973; 10757; 10734; 10756; 10813; 10957; 10796; 10756; 10738; 10748; 10796;
   10963; 10817; 10488; 10758; 10733; 10738; 8294; 10748; 10971; 10759; 10763; 10731; 10975;
   10759; 10763; 10732; 10736; 10775; 10732; 10982; 10796; 3618; 10942; 10915; 10944; 10737;
   10934; 10796; 10737; 10734; 10783; 10813; 10734; 10775; 10997; 10780; 10738; 10510; 10732;
   2889; 8666; 10738; 10752; 10736; 10494; 10732; 10748; 10897; 10734; 10771; 10848; 11014;
   10817; 10784; 11017; 10731; 10486; 10493; 10775; 10936; 10942; 10738; 10963; 10496; 2888;
   10734; 10732; 10756; 10904; 10748; 10759; 10796; 10971; 10502; 10504; 10734; 10738; 10758;
   3017; 10738; 10748; 10732; 10763; 8666; 10732; 10936; 10971; 10541; 10734; 10759; 10763;
   10819; 10732; 11056; 10757; 11058; 10781; 10738; 10737; 10732; 10734; 10738; 10963; 8819;
   8182; 10738; 11069; 11070; 11071; 11072; 11072; 11074; 11075; 11076; 11072; 11072; 11072;
   11072; 11081; 11072; 11072; 11070; 11072; 11086; 11072; 3618; 11072; 11090; 11091; 11072;
   11093; 971; 11095; 8290; 11072; 10671; 11099
  ].

(** States 11100 to 11249. *)
Definition ts_primary_state_ids_11100 : list Z :=
  [
   2988; 11090; 11102; 11103; 11104; 2980; 5625; 10486; 10502; 10504; 11110; 11076; 11112;
   3011; 11114; 11070; 11099; 11117; 10496; 11119; 11072; 11099; 11072; 8290; 11099; 3017;
   11126; 11072; 11090; 11072; 11130; 11076; 11072; 11133; 11072; 11135; 10510; 10494; 11090;
   11076; 10493; 11141; 11099; 11070; 11072; 11110; 10541; 11099; 11072; 11072; 3137; 11072;
   8276; 11153; 11154; 11155; 11072; 11072; 11076; 11072; 11160; 11076; 11162; 2889; 11072;
   8819; 11166; 11072; 11072; 11169; 11170; 11072; 11072; 11173; 11072; 8294; 11072; 11177;
   11070; 8294; 11072; 11093; 11182; 11072; 11099; 11072; 10651; 11072; 11072; 11099; 11076;
   11072; 11090; 11072; 11072; 11195; 11072; 8182; 11072; 11090; 11072; 11070; 11072; 11203;
   11204; 11070; 11206; 11207; 10488; 11072; 2973; 11211; 11090; 11213; 11214; 11072; 2888;
   11072; 11218; 11219; 11220; 11072; 11072; 10651; 11224; 11093; 11070; 11072; 8666; 11090;
   11230; 11231; 11093; 11233; 11234; 11235; 1321; 11237; 10584; 11234; 11240; 11241; 11240;
   11240; 11244; 3011; 11246; 11233; 11234; 11233
  ].

(** States 11250 to 11399. *)
Definition ts_primary_state_ids_11250 : list Z :=
  [
   11234; 11251; 11240; 11240; 11234; 11240; 11246; 11240; 2980; 11234; 11240; 11240; 11233;
   11234; 11233; 11233; 11266; 11233; 11234; 11233; 11233; 10651; 11244; 11240; 11240; 11240;
   10589; 11246; 11234; 11234; 11234; 11233; 11234; 11234; 11233; 11240; 11240; 11240; 11233;
   11234; 11234; 11234; 11240; 11233; 11240; 11240; 11233; 11244; 8182; 11233; 11246; 11240;
   11240; 11233; 11233; 11235; 11233; 11307; 11234; 11233; 11233; 11233; 11233; 11244; 11240;
   8290; 2988; 10493; 11234; 11233; 11246; 11233; 11234; 11234; 11324; 11233; 11233; 11234;
   11234; 10651; 11234; 11233; 11234; 8819; 11233; 11233; 11246; 2973; 11234; 11234; 11246;
   8276; 11240; 11234; 11234; 11233; 8666; 11233; 11240; 11234; 11234; 3017; 11234; 11240;
   11233; 11240; 10651; 8294; 11358; 11233; 11234; 11234; 11362; 11363; 11364; 11363; 11366;
   11367; 11364; 11363; 11370; 11371; 8290; 11364; 11363; 8294; 11376; 11364; 11363; 11364;
   11363; 11364; 11363; 11364; 11363; 11385; 11364; 11363; 11388; 11389; 11364; 11363; 11364;
   11363; 11394; 11395; 11396; 11364; 11398; 11363
  ].

(** States 11400 to 11549. *)
Definition ts_primary_state_ids_11400 : list Z :=
  [
   11364; 11401; 11402; 11364; 11363; 11364; 11363; 11407; 11364; 11363; 11410; 11364; 11412;
   11364; 11363; 11363; 11364; 11363; 11418; 11419; 11367; 11364; 11363; 11364; 11363; 11425;
   10589; 11364; 11363; 11429; 11364; 11363; 8290; 11364; 11363; 8294; 11363; 11363; 11363;
   11363; 11363; 11363; 11363; 11443; 11363; 11445; 11363; 11363; 11448; 11363; 11366; 11371;
   11363; 11410; 11454; 11412; 11364; 11363; 8276; 11363; 11418; 11419; 11425; 11429; 11363;
   11363; 11448; 11363; 11367; 11469; 11363; 11471; 11472; 11363; 11474; 11475; 11363; 11477;
   10651; 11363; 11480; 11469; 10396; 11471; 11363; 11363; 11486; 11385; 10394; 8666; 11490;
   11472; 11367; 11363; 11385; 11412; 11410; 11412; 11364; 11385; 11363; 11474; 11367; 11385;
   11475; 11410; 11477; 11507; 11385; 11385; 3137; 11385; 11480; 10396; 11410; 11364; 11443;
   11363; 10651; 5813; 11520; 11119; 11522; 11241; 8819; 11364; 11363; 11486; 10394; 11445;
   11231; 11364; 799; 11363; 11370; 11241; 10584; 11410; 11364; 11363; 11412; 11364; 8182;
   10651; 11407; 11545; 11389; 11547; 11545; 11549
  ].

(** States 11550 to 11699. *)
Definition ts_primary_state_ids_11550 : list Z :=
  [
   11550; 11549; 11552; 11553; 11554; 11469; 11177; 11429; 11558; 10589; 10373; 11549; 11475;
   11563; 11564; 11553; 11490; 11545; 11568; 11471; 10663; 11549; 11553; 11573; 11553; 11575;
   11474; 11545; 11578; 11549; 11580; 11581; 11545; 11549; 5625; 8294; 11586; 11545; 11549;
   11114; 11545; 11591; 10390; 11480; 10396; 11545; 11394; 11395; 11545; 11490; 11472; 11601;
   11602; 10666; 10367; 11396; 11606; 11553; 11443; 11388; 8666; 11601; 11477; 10584; 11486;
   11545; 11445; 8290; 11618; 11606; 11602; 11621; 11601; 11448; 11624; 11606; 11366; 8182;
   11602; 11545; 11371; 11606; 11606; 11606; 11606; 11606; 11636; 11401; 11638; 11606; 11606;
   11606; 11606; 11606; 11606; 11549; 11606; 11362; 11606; 11606; 11606; 11606; 11606; 11606;
   11606; 11606; 10651; 11606; 11606; 11606; 11606; 11606; 11606; 11663; 11664; 11407; 11638;
   8276; 11638; 11669; 11638; 11638; 8290; 11638; 10394; 11638; 11638; 11402; 11418; 8819;
   11419; 11553; 11425; 8294; 11684; 11685; 11686; 11687; 11688; 11685; 11690; 11691; 11692;
   11693; 11694; 11685; 11696; 11058; 11698; 11699
  ].

(** States 11700 to 11849. *)
Definition ts_primary_state_ids_11700 : list Z :=
  [
   11685; 11685; 11692; 11693; 11685; 11686; 11685; 11692; 11693; 11685; 11664; 8182; 11692;
   11693; 11685; 11691; 11716; 11692; 11693; 11685; 11692; 11721; 11692; 11693; 11685; 11725;
   11693; 10663; 11692; 11693; 11685; 11685; 11687; 11692; 11693; 11685; 8182; 11686; 11692;
   11693; 11685; 11687; 11692; 11693; 11685; 11745; 11746; 11692; 11693; 11685; 11692; 11693;
   11685; 11686; 11687; 11755; 11745; 11692; 11693; 11685; 10373; 11621; 11685; 11692; 11693;
   11685; 11692; 11693; 11685; 11692; 11693; 11685; 11686; 11687; 11686; 11692; 11693; 11685;
   11547; 11779; 11780; 11552; 11692; 11693; 11685; 11684; 11786; 11692; 11693; 11699; 11685;
   11692; 11693; 11685; 11692; 11693; 11685; 11686; 11687; 11699; 5625; 11692; 11693; 11685;
   11804; 11716; 11586; 11692; 11693; 11685; 8666; 11721; 11692; 11692; 11693; 11693; 11685;
   8276; 11685; 11692; 11693; 11821; 11822; 11591; 11692; 11693; 11114; 11685; 11686; 11684;
   11687; 11692; 11832; 11804; 11693; 11688; 11836; 11388; 11691; 11839; 11177; 11780; 11686;
   11685; 11692; 11693; 11685; 11847; 10767; 11849
  ].

(** States 11850 to 11999. *)
Definition ts_primary_state_ids_11850 : list Z :=
  [
   8819; 10158; 11716; 11686; 11687; 11721; 11856; 11573; 11692; 11804; 11693; 11685; 11836;
   11836; 11685; 11847; 11686; 11687; 11755; 11745; 11688; 11684; 11686; 11687; 11836; 11687;
   11692; 11693; 11780; 11685; 11847; 11699; 11780; 11684; 11693; 11885; 11836; 11692; 11693;
   11685; 11890; 11692; 11693; 11821; 11847; 11822; 11684; 11563; 11692; 11899; 11688; 11686;
   11693; 11685; 11847; 11684; 11687; 11554; 11716; 11755; 8276; 11692; 11847; 11693; 11684;
   11692; 11745; 11685; 11847; 11686; 11687; 11684; 11755; 11745; 11693; 11692; 11691; 11693;
   11684; 11929; 11930; 11684; 11932; 11821; 11847; 11935; 11721; 11937; 11938; 11699; 11940;
   11716; 11942; 11943; 10666; 11692; 11693; 11821; 11688; 11692; 11685; 11177; 11522; 11693;
   11685; 11822; 11716; 11686; 11394; 11564; 11395; 11685; 11686; 11687; 10868; 11686; 11687;
   11692; 11693; 11832; 11688; 11692; 10735; 11685; 5625; 11716; 11114; 11693; 10390; 11938;
   11980; 11692; 11693; 11581; 11685; 11686; 11687; 8290; 10871; 11938; 11780; 11938; 11992;
   11692; 11938; 11693; 11938; 11687; 11687; 11755
  ].

(** States 12000 to 12149. *)
Definition ts_primary_state_ids_12000 : list Z :=
  [
   12000; 11745; 11692; 11693; 11699; 11685; 8294; 11688; 11056; 10367; 11685; 11692; 11693;
   12013; 11685; 12015; 11692; 11716; 11693; 12019; 12020; 11401; 11942; 11686; 11687; 11822;
   11402; 11746; 11692; 11821; 11942; 11693; 11942; 12033; 11685; 11942; 11692; 11942; 11693;
   11821; 11942; 11636; 11822; 11685; 11688; 11692; 11558; 11692; 11693; 11755; 10158; 12051;
   12052; 12051; 12054; 11445; 12052; 12057; 12058; 12052; 12060; 12061; 11388; 12063; 12064;
   11396; 12066; 12067; 12060; 12069; 12052; 12071; 12072; 12073; 12074; 12075; 12076; 12077;
   12078; 12052; 12052; 12051; 12052; 12052; 12066; 12066; 11071; 11056; 11407; 11469; 10373;
   8666; 11086; 11095; 12071; 12058; 12096; 12097; 12073; 12075; 12100; 12052; 12102; 12096;
   12104; 12105; 12051; 12107; 11395; 12109; 11471; 11443; 11362; 971; 12057; 12069; 11445;
   12117; 12052; 12119; 12064; 12067; 12073; 12075; 12058; 11669; 12051; 12127; 11366; 11371;
   12052; 12052; 12132; 12071; 12072; 11407; 12052; 12052; 12052; 11578; 12140; 12052; 12052;
   12073; 12052; 12074; 11126; 11418; 11133; 11419
  ].

(** States 12150 to 12299. *)
Definition ts_primary_state_ids_12150 : list Z :=
  [
   11425; 11429; 12075; 12052; 12154; 12052; 12156; 11448; 12063; 12159; 12160; 12052; 11394;
   11394; 12078; 11486; 12052; 11469; 11471; 11153; 10367; 12171; 11472; 12072; 11443; 12052;
   12077; 11474; 11475; 11477; 12051; 12105; 12058; 12069; 12127; 11480; 10396; 12187; 12107;
   12189; 12057; 11395; 11207; 11445; 11486; 11069; 10394; 12066; 12052; 10367; 12064; 11396;
   2889; 12102; 12071; 12072; 12066; 12067; 12052; 10394; 12102; 12096; 12096; 12105; 12107;
   12052; 10373; 12052; 12064; 11388; 11401; 12221; 11224; 12067; 10868; 11480; 12064; 12067;
   10396; 12052; 12052; 12058; 12232; 12105; 11472; 11141; 12236; 11486; 12052; 12071; 12102;
   12072; 12052; 11154; 11366; 12096; 10871; 12074; 12105; 11371; 12127; 10394; 12057; 11389;
   10767; 12107; 12052; 12071; 12072; 12259; 12066; 12261; 12232; 12060; 12052; 11130; 12102;
   11160; 12102; 12096; 12105; 12107; 11162; 12097; 12052; 12275; 11155; 11407; 12064; 12067;
   12096; 12052; 12154; 12061; 12054; 12054; 12052; 12259; 11058; 12132; 8666; 12291; 5813;
   11170; 12073; 12074; 12075; 12057; 11624; 12232
  ].

(** States 12300 to 12449. *)
Definition ts_primary_state_ids_12300 : list Z :=
  [
   12052; 12052; 12052; 12078; 12154; 12061; 11166; 12052; 11480; 12259; 11418; 12073; 11575;
   11203; 12132; 11419; 10663; 11425; 12105; 12154; 11429; 12061; 12322; 12051; 12259; 12132;
   12326; 11418; 12154; 12127; 12061; 12064; 12259; 12132; 11443; 12057; 12067; 12154; 12061;
   12339; 12107; 11230; 12259; 12132; 11402; 12052; 12154; 12061; 11389; 10666; 12259; 12052;
   12127; 12132; 12354; 12355; 12154; 11477; 11074; 11477; 11362; 12075; 12127; 12052; 10396;
   12066; 11211; 11474; 11213; 10735; 12052; 8819; 11448; 12373; 11218; 11448; 11204; 11117;
   11206; 12073; 11219; 11366; 12382; 12074; 11091; 12075; 12057; 12387; 10390; 11371; 11419;
   12052; 12232; 12078; 11220; 12060; 12052; 12397; 12052; 12066; 12052; 12051; 12402; 11475;
   2888; 12052; 12406; 12261; 12078; 12052; 11425; 12232; 11429; 11469; 12052; 12402; 12402;
   12261; 12052; 12402; 12102; 8819; 11471; 12261; 11401; 12425; 12402; 11402; 12261; 11214;
   12069; 12402; 12052; 12052; 12261; 12073; 12069; 11474; 12402; 12074; 12261; 12075; 12052;
   12127; 12052; 11472; 11475; 12071; 12072; 12057
  ].

(** States 12450 to 12599. *)
Definition ts_primary_state_ids_12450 : list Z :=
  [
   10390; 12052; 12060; 12078; 12127; 12107; 1298; 11056; 12458; 1288; 12460; 12461; 11445;
   11207; 12464; 11366; 12466; 11371; 11074; 12469; 11448; 10868; 12472; 1299; 12474; 11394;
   12476; 11474; 11469; 1300; 11471; 12461; 12469; 12483; 3017; 11472; 12486; 1289; 12488;
   12489; 12490; 12491; 11474; 11475; 1301; 11477; 12461; 12497; 12498; 12469; 1302; 11558;
   11563; 11480; 10396; 12505; 11126; 12461; 12508; 12508; 12510; 11407; 12512; 12476; 11133;
   11407; 12486; 12461; 12469; 12491; 12505; 12460; 12522; 12523; 12469; 12510; 12526; 12476;
   11448; 11601; 12530; 1290; 12508; 12512; 12534; 1303; 11153; 12537; 11486; 12539; 12540;
   11472; 11601; 12461; 11418; 1273; 10394; 11419; 11425; 12549; 11429; 12472; 11362; 12458;
   12554; 12512; 10871; 12557; 12558; 12461; 11401; 12561; 1284; 12563; 12564; 1304; 12566;
   2973; 12469; 11480; 12570; 10396; 12469; 12474; 12563; 12575; 12576; 12522; 12464; 11445;
   1305; 1248; 1286; 11443; 1278; 11402; 12530; 12554; 11445; 12537; 12590; 12591; 11469;
   12464; 12549; 11366; 11371; 12554; 11471; 10767
  ].

(** States 12600 to 12749. *)
Definition ts_primary_state_ids_12600 : list Z :=
  [
   12600; 12558; 11407; 12590; 12461; 12530; 12522; 1296; 11395; 12469; 12610; 11418; 12530;
   11419; 11425; 11429; 11581; 12537; 11475; 11448; 12557; 11394; 11395; 12461; 11469; 12549;
   12476; 11471; 11472; 12554; 12476; 11448; 11474; 12558; 1210; 11475; 11477; 11472; 12564;
   12539; 11366; 11371; 12522; 12486; 12461; 12530; 11664; 11480; 1227; 10396; 11418; 12540;
   11664; 1229; 12498; 1291; 11469; 11211; 1285; 11471; 11486; 12469; 10394; 12469; 12554;
   12522; 12461; 12510; 12558; 1277; 12491; 12476; 12505; 12486; 12522; 12461; 12539; 1232;
   11058; 12530; 12508; 12512; 11218; 12539; 12540; 12461; 11477; 1292; 1240; 12461; 3011;
   12554; 12472; 12461; 12497; 12558; 1245; 12458; 12469; 12522; 12557; 12530; 11219; 12476;
   11396; 12705; 12564; 12566; 11401; 11402; 12498; 12549; 12570; 11220; 12469; 1251; 12474;
   12563; 12554; 11472; 12558; 11621; 11443; 11419; 11586; 11591; 11474; 10373; 12590; 12464;
   12554; 12461; 12558; 11443; 11425; 12735; 1252; 11429; 11475; 12469; 1256; 12469; 11477;
   1264; 12461; 11445; 12510; 12472; 12491; 12505
  ].

(** States 12750 to 12899. *)
Definition ts_primary_state_ids_12750 : list Z :=
  [
   12750; 11443; 11203; 1268; 12469; 11448; 11429; 1269; 11564; 12476; 12469; 11396; 12469;
   12508; 1270; 11474; 12512; 12767; 12486; 11480; 12566; 12458; 1293; 10396; 12539; 11443;
   2888; 11231; 12539; 11366; 11371; 12510; 2980; 12491; 12505; 1294; 12508; 12539; 12461;
   11475; 12458; 12461; 12539; 12540; 12557; 12540; 12461; 12461; 11141; 12557; 11477; 12564;
   12566; 11086; 12469; 12469; 12806; 11154; 11095; 12590; 11155; 2889; 11388; 11486; 10394;
   11389; 11601; 12472; 10735; 11469; 12570; 11407; 11547; 11445; 12354; 12476; 11471; 11552;
   12458; 12461; 5813; 11480; 11554; 10396; 12834; 11621; 12469; 11130; 12539; 12557; 12510;
   12735; 12469; 10390; 11160; 11162; 11418; 12508; 12564; 11419; 12539; 12851; 12461; 11170;
   12486; 11425; 11429; 12498; 12458; 11204; 11445; 12564; 12566; 12469; 11486; 12566; 12076;
   11166; 10394; 11206; 11388; 12590; 12872; 12564; 12461; 11486; 11448; 12566; 12354; 10394;
   11389; 12558; 11389; 11069; 12570; 12885; 11469; 11407; 11471; 12469; 12476; 12474; 12892;
   12537; 11362; 12563; 11213; 11558; 11472; 12461
  ].

(** States 12900 to 13049. *)
Definition ts_primary_state_ids_12900 : list Z :=
  [
   12570; 11564; 5813; 12469; 11563; 12469; 2988; 11071; 11366; 12534; 11474; 11366; 11371;
   11475; 11371; 11477; 12510; 12561; 10367; 12474; 12920; 12921; 12590; 12563; 12508; 11394;
   11480; 12539; 11395; 12461; 10396; 1217; 12464; 12498; 12461; 11396; 12458; 971; 12510;
   1297; 12940; 11214; 12564; 11091; 12566; 12469; 12469; 1209; 11581; 12590; 11443; 12461;
   11388; 11486; 11407; 11117; 10394; 12469; 12958; 12469; 12489; 12491; 11554; 12476; 11586;
   12505; 11591; 11601; 11418; 11224; 11418; 12590; 11419; 11425; 11419; 11429; 11401; 11402;
   11230; 11425; 11547; 12981; 11119; 12406; 11552; 11362; 12461; 12987; 12988; 12989; 12990;
   11448; 11475; 11477; 11601; 1247; 11581; 1268; 1227; 11445; 1270; 11552; 13002; 11366;
   13004; 13005; 1305; 13007; 13008; 13009; 11419; 13011; 11214; 11371; 12989; 1248; 11554;
   11471; 13018; 12989; 11480; 12987; 13022; 11448; 11621; 13025; 1269; 11396; 13028; 11586;
   12988; 11591; 13032; 13033; 11366; 13025; 11371; 12989; 13032; 13039; 13040; 13032; 13042;
   1286; 13044; 13045; 11471; 10396; 13048; 13049
  ].

(** States 13050 to 13199. *)
Definition ts_primary_state_ids_13050 : list Z :=
  [
   13025; 11425; 11448; 11366; 13054; 13055; 11371; 13057; 12990; 13059; 11448; 1270; 13062;
   11418; 13005; 12989; 12988; 10396; 11407; 11086; 12989; 13011; 11224; 11475; 11469; 1229;
   13076; 11230; 11095; 11418; 11471; 11419; 11425; 13025; 11472; 13009; 13086; 11429; 13045;
   1331; 13090; 13062; 11219; 11207; 11445; 13095; 13096; 13032; 11448; 12987; 11477; 11074;
   13022; 13103; 11480; 11480; 13025; 13028; 11419; 12988; 13110; 1164; 13086; 1232; 11448;
   13039; 13040; 13042; 13118; 13119; 13120; 13121; 13062; 13123; 13124; 13125; 13009; 11469;
   13128; 11471; 11443; 11472; 12989; 11429; 11469; 11472; 11425; 13025; 13095; 13139; 11126;
   13025; 13005; 11133; 13095; 12988; 13146; 13147; 13005; 12989; 11407; 13095; 11443; 1240;
   13154; 11474; 11388; 13154; 11475; 11477; 11117; 13161; 13009; 13045; 13054; 11486; 13103;
   11477; 11429; 12989; 13170; 1293; 13172; 1351; 1245; 12987; 11366; 13022; 11474; 11558;
   11480; 10396; 13028; 11601; 13007; 12987; 13186; 13022; 11155; 10394; 11472; 13039; 13040;
   13042; 12989; 11564; 1278; 11547; 11552; 11418
  ].

(** States 13200 to 13349. *)
Definition ts_primary_state_ids_13200 : list Z :=
  [
   11475; 13054; 12989; 11554; 13204; 11477; 13206; 13207; 11486; 11469; 13032; 13005; 11071;
   11419; 11425; 12988; 13032; 10394; 11429; 11366; 11469; 1294; 11601; 11394; 11395; 10394;
   12987; 11407; 11725; 13022; 13230; 13028; 11407; 13039; 13040; 13042; 1157; 13237; 13238;
   13239; 11558; 3017; 13242; 13243; 13244; 13032; 1297; 12988; 11389; 12989; 11371; 11448;
   11563; 13032; 13170; 11621; 11480; 13172; 10396; 12987; 13039; 13025; 11419; 13039; 13040;
   13040; 13032; 11445; 13161; 13025; 13042; 13271; 13011; 12988; 11474; 11474; 13243; 13186;
   13278; 13004; 12987; 13049; 11474; 11547; 13284; 12987; 1277; 13287; 12989; 13039; 13040;
   1301; 11418; 11471; 13294; 1355; 11564; 11581; 12988; 11448; 1165; 13301; 1356; 13032;
   13304; 1217; 11475; 12989; 13025; 12987; 13039; 13040; 11419; 13313; 1302; 13315; 13316;
   1209; 1217; 12988; 13022; 11362; 11425; 13323; 11389; 13325; 11429; 11371; 11477; 13329;
   12987; 11469; 13039; 13040; 13118; 13335; 11471; 10396; 12988; 12989; 13062; 13086; 13342;
   11443; 11366; 11418; 12987; 13039; 13040; 13349
  ].

(** States 13350 to 13499. *)
Definition ts_primary_state_ids_13350 : list Z :=
  [
   11486; 12989; 13025; 10394; 13045; 13054; 12988; 12989; 11445; 13359; 13170; 13361; 11448;
   13363; 12987; 13039; 13040; 13146; 13368; 13206; 13139; 12988; 11472; 13373; 11371; 13032;
   13007; 11552; 12990; 12987; 11445; 13039; 13040; 13062; 13011; 11558; 13386; 12989; 13025;
   12988; 11166; 11475; 3011; 11477; 13032; 13103; 11664; 13039; 13040; 11366; 11371; 11471;
   13402; 11448; 1160; 12988; 11477; 1269; 13170; 13172; 1327; 11418; 12987; 13039; 13040;
   13415; 11486; 13417; 11480; 12988; 11443; 11407; 13028; 13032; 12987; 13032; 13039; 13040;
   13086; 1328; 11474; 13062; 13032; 13032; 11581; 12988; 13095; 1329; 11418; 11419; 11425;
   11429; 11407; 12987; 13039; 13040; 13032; 1292; 11472; 12988; 11366; 13086; 11394; 13453;
   11475; 11448; 13335; 13062; 12987; 13103; 13039; 13040; 12989; 13463; 13464; 11563; 13025;
   12988; 11407; 13025; 11477; 13032; 11220; 2980; 11469; 13475; 11471; 11469; 13478; 12988;
   13055; 1304; 13482; 13483; 11472; 13170; 13172; 13055; 13488; 13124; 13095; 12988; 11443;
   13095; 11471; 12989; 11474; 11469; 11475; 11477
  ].

(** States 13500 to 13649. *)
Definition ts_primary_state_ids_13500 : list Z :=
  [
   12989; 12988; 11443; 13313; 13139; 11443; 11471; 13005; 11474; 12988; 11480; 10396; 10396;
   11419; 11445; 13515; 11401; 11402; 13170; 11362; 12988; 13025; 13125; 13523; 11475; 11480;
   11601; 13172; 13032; 12989; 10396; 11371; 12988; 13025; 12988; 11486; 11486; 10394; 11419;
   13032; 11480; 11472; 971; 11474; 12989; 11395; 13039; 11472; 11445; 12988; 11366; 11371;
   10396; 11480; 10396; 13004; 11475; 13119; 13558; 13045; 11448; 11477; 12988; 1217; 12989;
   13032; 11371; 11425; 11586; 13090; 13278; 11591; 11407; 13025; 13049; 13007; 11445; 11474;
   11419; 12989; 11475; 13009; 13007; 13583; 13139; 11477; 13040; 11418; 11419; 11425; 11429;
   11425; 13592; 11443; 13335; 11472; 13032; 11429; 11471; 13032; 11486; 11429; 12987; 13042;
   13604; 11448; 13022; 11396; 13608; 11388; 10394; 13611; 10394; 11394; 11443; 11472; 13028;
   13086; 11475; 11395; 13062; 1296; 11601; 13287; 13361; 13095; 11469; 13627; 12989; 11471;
   13039; 13040; 13042; 11472; 1273; 13007; 11472; 13062; 11407; 13243; 11475; 11443; 13090;
   1288; 11477; 11130; 11401; 11474; 13316; 11475
  ].

(** States 13650 to 13799. *)
Definition ts_primary_state_ids_13650 : list Z :=
  [
   11474; 11477; 12989; 13170; 13172; 11475; 13032; 13032; 11477; 13032; 11443; 11586; 13025;
   11160; 11591; 13665; 11480; 10396; 13313; 11445; 13095; 11448; 13032; 13025; 13674; 13237;
   11474; 13118; 13678; 13172; 13680; 13681; 11407; 13463; 13464; 13488; 13523; 13025; 13478;
   10394; 11396; 13691; 11469; 11366; 13402; 13373; 13453; 12989; 1210; 13123; 11371; 13701;
   11480; 13032; 10396; 11425; 13706; 13032; 1298; 1309; 11486; 12989; 10394; 11402; 11445;
   11429; 13402; 1289; 13718; 13402; 13025; 11486; 11366; 10247; 10394; 13170; 13674; 13237;
   13172; 11162; 11366; 11371; 11407; 13680; 12989; 13363; 11429; 13463; 13464; 13488; 13523;
   13032; 11170; 13478; 12989; 10394; 11445; 13373; 13453; 13095; 13032; 13005; 13032; 13170;
   13592; 12989; 11469; 13674; 13237; 11407; 13025; 1251; 13172; 12988; 2988; 13680; 11366;
   11469; 13463; 13464; 13488; 13523; 12989; 11418; 13774; 13478; 11407; 11664; 13373; 13453;
   13780; 12989; 1290; 11154; 11371; 13004; 13032; 13032; 13674; 13237; 13790; 11418; 13792;
   13680; 11477; 11419; 13463; 13464; 13488; 13523
  ].

(** States 13800 to 13949. *)
Definition ts_primary_state_ids_13800 : list Z :=
  [
   13800; 13478; 11425; 11429; 13373; 13453; 13032; 11621; 13701; 11601; 11554; 13004; 13674;
   13237; 13049; 11664; 1285; 13592; 11419; 11218; 13680; 11480; 11471; 11448; 13463; 13464;
   13488; 13523; 12989; 13691; 13478; 13373; 13453; 13007; 13090; 10396; 11425; 11474; 12989;
   13674; 13237; 13032; 11425; 11486; 13032; 11429; 13680; 11407; 13463; 13464; 13488; 13523;
   11445; 13032; 13680; 13478; 11203; 11418; 13373; 13453; 1357; 11204; 11469; 11418; 11471;
   13009; 10394; 13025; 11153; 11472; 13680; 11419; 13872; 13873; 13478; 11418; 1153; 11419;
   11425; 12989; 13680; 13025; 11486; 10394; 11429; 13680; 1252; 13032; 11474; 13680; 13032;
   13009; 11206; 11475; 13680; 11141; 12989; 13897; 11477; 13680; 11486; 11407; 13086; 13903;
   13062; 13680; 11480; 11469; 12987; 13022; 12989; 13680; 11366; 13095; 11443; 11443; 13680;
   11445; 12989; 13032; 1277; 11443; 13680; 11445; 11563; 13170; 13680; 11425; 11069; 11371;
   11213; 13680; 12989; 13933; 11443; 11480; 13680; 13028; 1256; 10396; 13680; 13941; 1264;
   13680; 13172; 11429; 11445; 13680; 13674; 11564
  ].

(** States 13950 to 14099. *)
Definition ts_primary_state_ids_13950 : list Z :=
  [
   11418; 13680; 12989; 13054; 13680; 11091; 11419; 1288; 13680; 11445; 13032; 13170; 13680;
   11425; 13172; 1291; 13680; 13032; 11429; 11486; 13680; 11443; 13039; 13040; 10396; 11407;
   11486; 13042; 11445; 13979; 1289; 11366; 11480; 12989; 13243; 11371; 12989; 13110; 13032;
   13774; 13990; 11366; 13611; 13076; 12990; 13032; 1290; 11475; 11418; 13025; 13049; 14001;
   1303; 12989; 11388; 11480; 13774; 10396; 1291; 11486; 1292; 1217; 14012; 10394; 11211;
   13313; 12989; 13774; 11418; 13025; 10394; 14021; 1293; 1294; 13032; 13774; 11601; 13032;
   13025; 13118; 11366; 11471; 11448; 11371; 11469; 12989; 1299; 13774; 11472; 11401; 14040;
   2973; 11474; 13025; 13025; 12989; 11486; 13774; 13315; 11402; 13032; 13774; 1300; 10394;
   11362; 11371; 1297; 1209; 11407; 13349; 13032; 11472; 12989; 11486; 1273; 11443; 1298;
   1299; 11418; 1300; 11419; 11425; 11429; 1301; 1302; 12989; 13045; 14077; 13005; 13004;
   13054; 11448; 1303; 13062; 13032; 13032; 1247; 11547; 1304; 1284; 10394; 12989; 1305; 1248;
   1286; 1278; 1296; 11469; 1210; 11471
  ].

(** States 14100 to 14249. *)
Definition ts_primary_state_ids_14100 : list Z :=
  [
   1227; 1229; 10396; 1268; 11471; 1232; 11472; 1240; 1245; 11389; 13049; 1251; 1285; 1252;
   1256; 1264; 11474; 1284; 1264; 14119; 14120; 14121; 14122; 1299; 14124; 1300; 14126; 11601;
   14128; 14129; 14130; 14128; 14132; 14133; 14134; 1301; 1302; 14122; 14138; 11621; 14140;
   12958; 14142; 14143; 14144; 14126; 14146; 14147; 11601; 14149; 14150; 14151; 14152; 14153;
   14154; 14152; 14134; 14130; 1303; 14159; 14160; 14149; 14150; 14163; 14140; 14134; 14142;
   14167; 11586; 1304; 14170; 11591; 14172; 14173; 1305; 14175; 14176; 1248; 1286; 14179;
   1278; 14181; 14149; 14150; 14184; 14185; 1296; 14187; 1210; 14189; 14190; 1298; 1227; 1229;
   14194; 14153; 14184; 14179; 14190; 1232; 14200; 1240; 1245; 14154; 14200; 14128; 14134;
   14207; 14208; 14209; 14210; 14211; 14128; 14213; 14214; 14149; 14150; 1299; 14134; 1251;
   14194; 1300; 1252; 1256; 14185; 11396; 14226; 14227; 14228; 14189; 14230; 14119; 1268;
   14233; 14234; 1269; 14236; 14185; 14122; 14239; 1270; 14241; 14242; 14126; 11547; 14208;
   14246; 14247; 14248; 14185
  ].

(** States 14250 to 14399. *)
Definition ts_primary_state_ids_14250 : list Z :=
  [
   14130; 11564; 14252; 14140; 14254; 14255; 14142; 14189; 14247; 14259; 14259; 14175; 14262;
   14263; 14134; 1301; 1302; 14149; 14150; 14120; 14270; 14179; 14272; 14248; 14274; 14190;
   14276; 14167; 14230; 14200; 14119; 14132; 14133; 14189; 14185; 14285; 14236; 14189; 14259;
   14289; 14290; 14291; 14292; 14179; 14294; 14295; 11547; 14297; 14298; 14140; 14213; 14214;
   14230; 14303; 14213; 14305; 14214; 14144; 14308; 14309; 14122; 14311; 14312; 14142; 14179;
   14315; 14121; 14130; 14175; 14176; 14134; 14321; 14179; 14190; 14176; 14190; 14200; 14327;
   14200; 14149; 14330; 14150; 14128; 14333; 14334; 14185; 14336; 14189; 14262; 14339; 14179;
   14213; 14230; 14119; 14144; 14214; 14213; 14214; 14209; 14210; 14211; 14134; 14129; 11480;
   14122; 14149; 14356; 14357; 14122; 14359; 14126; 14361; 14213; 14227; 14214; 14365; 14366;
   14153; 14234; 14134; 14370; 14239; 14154; 14241; 14130; 14375; 14150; 14208; 14140; 14379;
   14248; 14381; 14382; 14383; 14384; 14385; 14142; 1303; 14388; 14185; 14390; 14391; 14189;
   14393; 14394; 14395; 14396; 14290; 14120; 14179
  ].

(** States 14400 to 14549. *)
Definition ts_primary_state_ids_14400 : list Z :=
  [
   14400; 14121; 11552; 14213; 14214; 14405; 14213; 14179; 14408; 14388; 14132; 14133; 14121;
   14241; 14124; 14311; 14416; 14138; 14418; 14214; 14143; 14421; 14122; 14194; 14128; 14134;
   14129; 14427; 14190; 14134; 14334; 14149; 14150; 14433; 14184; 14200; 14159; 14437; 14226;
   14185; 14440; 14185; 14442; 14175; 14176; 14445; 14189; 14140; 14448; 14179; 14255; 14451;
   14185; 14213; 14214; 1304; 14456; 14149; 14458; 14459; 14230; 14119; 14230; 14133; 14122;
   14305; 14289; 14119; 14189; 14305; 14209; 14210; 14211; 14309; 14185; 14309; 14134; 14122;
   14226; 14189; 14259; 14481; 14482; 1305; 14227; 1248; 14486; 14185; 14488; 14234; 14189;
   14421; 14239; 14311; 14241; 1286; 14179; 14208; 14126; 14499; 14248; 14321; 14327; 1278;
   14179; 14213; 14214; 14190; 14200; 1296; 14421; 14511; 14512; 14236; 14336; 14120; 14292;
   1210; 14262; 14213; 14214; 14134; 14129; 14357; 14242; 14122; 14132; 14133; 14528; 14391;
   14394; 14395; 14400; 14533; 14121; 14535; 14421; 14291; 14150; 14126; 14129; 14185; 1227;
   14189; 14334; 14433; 14546; 14547; 14179; 14159
  ].

(** States 14550 to 14699. *)
Definition ts_primary_state_ids_14550 : list Z :=
  [
   14550; 14259; 14552; 14213; 14437; 14214; 14122; 1229; 14558; 14175; 14176; 14561; 14230;
   14119; 14486; 14565; 14566; 14126; 14568; 14140; 14570; 14129; 14134; 14573; 14122; 14575;
   14576; 14126; 14528; 14533; 14119; 14187; 14535; 14291; 14488; 14153; 14209; 14210; 14211;
   14185; 14154; 14550; 14189; 14130; 14189; 14179; 14561; 14153; 14598; 14154; 14227; 14601;
   14140; 14213; 14214; 14234; 14130; 14142; 14239; 1232; 14241; 14611; 14612; 14208; 14566;
   14568; 14248; 14570; 14573; 14619; 14620; 1240; 14622; 14575; 14140; 1245; 14134; 14339;
   14120; 14128; 14134; 14631; 14187; 14619; 14620; 14132; 14133; 1277; 14638; 14187; 14194;
   14153; 14154; 14207; 14153; 14233; 14646; 14242; 14246; 14142; 14154; 14651; 14303; 14130;
   14185; 14575; 14330; 14189; 14339; 14175; 14176; 1285; 14662; 14365; 14427; 14207; 14149;
   14179; 14233; 14150; 14451; 14456; 14482; 14140; 14242; 14675; 14488; 14213; 14433; 14209;
   14210; 14211; 14214; 14388; 14684; 14684; 14246; 14142; 14227; 14408; 14252; 14234; 14179;
   14693; 14239; 11586; 14241; 14208; 3560; 1251
  ].

(** States 14700 to 14849. *)
Definition ts_primary_state_ids_14700 : list Z :=
  [
   14248; 14701; 14263; 11601; 14704; 14190; 14134; 14285; 14120; 1252; 14710; 11601; 14693;
   14298; 14714; 14303; 14130; 14246; 14718; 14200; 14185; 14721; 14213; 14189; 11621; 14330;
   14179; 14185; 1256; 14339; 14213; 14208; 14214; 14189; 14248; 14142; 11591; 14737; 14738;
   14408; 14365; 14427; 14120; 14214; 1264; 14128; 14134; 11554; 14179; 14134; 14451; 14122;
   14190; 14456; 14754; 14200; 1268; 14121; 11563; 14391; 14760; 14185; 14458; 14189; 14482;
   14208; 14511; 14179; 14248; 14151; 11586; 14771; 1269; 14546; 14213; 14214; 14120; 14213;
   14214; 14779; 14547; 14558; 14782; 14783; 14128; 14140; 14134; 14213; 14788; 14488; 14152;
   14179; 1270; 14134; 14236; 14160; 6328; 14214; 14149; 14684; 14150; 14248; 14160; 14803;
   14804; 14230; 14119; 14185; 14120; 14421; 14149; 14150; 14189; 14693; 14710; 14179; 14718;
   14122; 14142; 14213; 14214; 14388; 14126; 14754; 14408; 14121; 14826; 14827; 14248; 14829;
   14458; 14831; 11362; 14693; 11486; 14120; 14130; 14837; 14272; 14134; 14459; 14126; 14140;
   11558; 14359; 14185; 14846; 11563; 14142; 14803
  ].

(** States 14850 to 14999. *)
Definition ts_primary_state_ids_14850 : list Z :=
  [
   14254; 14851; 14274; 14247; 14185; 14248; 14361; 14189; 14276; 11389; 14179; 14451; 14120;
   14185; 14864; 14134; 14213; 14214; 14864; 14366; 14272; 14274; 14276; 14276; 14189; 14149;
   14150; 14236; 14189; 14879; 14880; 14881; 14248; 14259; 14185; 14879; 14230; 14119; 14259;
   14120; 14134; 14230; 14292; 14289; 11601; 14297; 14189; 11581; 14179; 14190; 14200; 14185;
   14185; 14119; 14189; 14189; 14134; 14248; 14179; 14421; 14289; 14236; 14179; 14190; 14120;
   14213; 14214; 14200; 14252; 14160; 14456; 14129; 14179; 14209; 14190; 14200; 14213; 14213;
   14388; 14929; 14214; 14122; 14248; 14214; 11601; 14134; 14234; 14361; 14213; 14120; 14214;
   14366; 14942; 14121; 14370; 14126; 14259; 14151; 14382; 14384; 14185; 14951; 11664; 14189;
   14272; 14128; 14396; 14248; 14290; 14179; 14134; 14961; 6329; 14388; 14120; 14187; 14121;
   11564; 14213; 14214; 14124; 14305; 14153; 14138; 14143; 14975; 14154; 14230; 14119; 14230;
   14119; 14226; 14248; 14122; 14130; 14126; 14986; 14134; 14988; 14120; 14309; 14129; 14130;
   14394; 14550; 14619; 14395; 14151; 14128; 14213
  ].

(** States 15000 to 15149. *)
Definition ts_primary_state_ids_15000 : list Z :=
  [
   14185; 14140; 14230; 14189; 14122; 14142; 14119; 14248; 14179; 14309; 14311; 14210; 14321;
   14327; 14120; 14370; 14126; 14213; 14214; 14152; 14140; 14189; 14152; 14336; 14262; 14153;
   14134; 14190; 14160; 14154; 14149; 14150; 14248; 14561; 14134; 14357; 14130; 11664; 14142;
   14120; 14311; 14140; 14172; 14400; 15044; 14391; 14394; 14395; 14400; 15049; 14149; 14185;
   14421; 14248; 14150; 14189; 14142; 11601; 14129; 14179; 14120; 14620; 14321; 14334; 14433;
   14236; 14213; 14437; 14214; 14122; 14361; 11601; 14185; 14263; 14248; 14126; 14327; 14189;
   11601; 15079; 14535; 14120; 14179; 14291; 1277; 14295; 14190; 14200; 14550; 14561; 14134;
   14129; 14179; 14566; 14190; 14248; 14568; 15097; 14570; 14573; 14575; 15101; 14120; 14200;
   14122; 14128; 14619; 14620; 14185; 14121; 14189; 14187; 14153; 14154; 14207; 15115; 14248;
   14233; 14242; 15119; 14246; 14130; 14566; 14120; 14179; 14185; 14134; 14172; 14213; 14214;
   14382; 14365; 14427; 14382; 14213; 14451; 14456; 14248; 14482; 14140; 14214; 14151; 14149;
   14684; 14120; 14150; 14142; 14408; 14254; 14693
  ].

(** States 15150 to 15299. *)
Definition ts_primary_state_ids_15150 : list Z :=
  [
   14327; 14128; 14247; 14336; 11601; 14285; 14134; 14262; 14248; 14259; 14134; 15161; 14573;
   14384; 14230; 14120; 14119; 14185; 14230; 14189; 14357; 11581; 14179; 14128; 14134; 14272;
   14122; 15177; 14274; 14248; 14213; 14151; 14214; 14119; 14126; 14276; 14120; 14384; 14357;
   14149; 14119; 15191; 14150; 14297; 14149; 14150; 15196; 14185; 14134; 14140; 14248; 14214;
   14486; 15203; 14213; 14189; 14142; 14120; 14189; 14236; 14259; 14445; 14185; 14259; 14185;
   14189; 14254; 14247; 14211; 14214; 14248; 14179; 14126; 14292; 14187; 14272; 14274; 14276;
   14185; 14213; 14248; 14189; 14236; 14214; 14134; 14259; 14146; 14259; 14292; 15239; 14248;
   15241; 14297; 11552; 14149; 14295; 14150; 14388; 14179; 14190; 14248; 14147; 14179; 14134;
   14172; 14190; 14200; 11664; 14200; 14128; 14248; 14124; 14297; 14134; 14121; 14185; 14213;
   14214; 15268; 14248; 14189; 14361; 14421; 14366; 14170; 14179; 14391; 14370; 14248; 14396;
   14382; 14185; 14384; 14213; 14214; 1288; 14396; 14248; 14290; 14189; 14213; 14684; 14388;
   14121; 14124; 14481; 14248; 14214; 14138; 14143
  ].

(** States 15300 to 15449. *)
Definition ts_primary_state_ids_15300 : list Z :=
  [
   14185; 14290; 14144; 14181; 14179; 14248; 14134; 14190; 14200; 14187; 14132; 14153; 14179;
   14248; 14121; 14190; 14185; 14200; 15318; 14189; 14154; 14248; 14274; 14230; 14119; 14179;
   14309; 14311; 14394; 14248; 14321; 14327; 14185; 14395; 14213; 14214; 14213; 14248; 14336;
   14262; 14214; 12591; 14357; 14400; 14568; 14248; 14129; 14391; 14394; 14395; 14400; 14437;
   11558; 14248; 14421; 11554; 14129; 15357; 14151; 14334; 1289; 14248; 14433; 14213; 14230;
   11725; 14437; 14134; 14214; 14248; 14119; 14122; 14189; 14230; 14119; 14126; 14236; 14248;
   14152; 14359; 14535; 14291; 14185; 14570; 14239; 14248; 14550; 14561; 14189; 11725; 14566;
   14568; 14570; 14248; 14573; 14575; 14122; 14298; 14179; 14361; 14129; 14248; 14126; 14619;
   14620; 14213; 14187; 14153; 14214; 14154; 14207; 14122; 15412; 14126; 14130; 15177; 15416;
   14160; 14421; 14140; 14233; 14242; 14366; 14122; 14134; 14142; 14185; 14246; 14189; 15429;
   14153; 14154; 14134; 14138; 14130; 14170; 15436; 14130; 14259; 14134; 14129; 14140; 14986;
   14134; 14370; 14172; 14153; 14149; 14208; 14150
  ].

(** States 15450 to 15599. *)
Definition ts_primary_state_ids_15450 : list Z :=
  [
   14142; 14365; 14248; 14427; 14528; 14382; 14384; 1290; 14451; 14456; 14482; 14140; 14149;
   14150; 11591; 14684; 14142; 14189; 14408; 14334; 14693; 11581; 14365; 14396; 14290; 11601;
   14336; 14292; 14433; 15479; 14975; 14126; 14185; 15483; 15484; 14189; 15486; 14185; 14482;
   14179; 14190; 14128; 15177; 15416; 14128; 14120; 14179; 14134; 14190; 14388; 14121; 14124;
   14200; 14200; 14134; 14159; 14138; 14200; 14132; 14133; 15510; 14143; 14151; 15436; 14149;
   14150; 14213; 14214; 14427; 14437; 15520; 15521; 1284; 14236; 14445; 14149; 14150; 14167;
   14448; 14986; 14255; 14185; 15177; 15416; 14714; 14459; 15536; 14184; 14146; 14147; 14388;
   14230; 14119; 14227; 14194; 14149; 14230; 14122; 11621; 14126; 14254; 14185; 14119; 15436;
   14130; 14226; 14189; 14259; 14140; 14247; 14142; 14213; 1291; 14185; 1273; 14214; 14247;
   1292; 14154; 14295; 15177; 15416; 14179; 14134; 14190; 14272; 14274; 14276; 14175; 14176;
   14200; 14149; 14189; 14150; 14552; 14511; 14121; 15587; 14122; 14236; 15590; 15436; 14230;
   14119; 14388; 14546; 14272; 14289; 14259; 14274
  ].

(** States 15600 to 15749. *)
Definition ts_primary_state_ids_15600 : list Z :=
  [
   14292; 14276; 14121; 14124; 14213; 14297; 15177; 15416; 14185; 15609; 14189; 14214; 14421;
   14259; 14121; 14305; 14309; 14311; 14129; 14321; 14179; 14327; 14190; 14200; 14547; 14138;
   14179; 15436; 14189; 14190; 15630; 14236; 14122; 14209; 14200; 14486; 14321; 14210; 14211;
   14213; 14214; 15177; 15416; 14187; 14126; 14336; 14143; 1293; 15648; 14259; 14262; 14448;
   14292; 14213; 14214; 14760; 14533; 14230; 14357; 14714; 14119; 14230; 15436; 1284; 14227;
   14143; 14119; 14710; 14230; 14391; 14295; 14122; 14119; 14234; 14126; 14129; 15177; 14366;
   14382; 14384; 14122; 14394; 15682; 15683; 15684; 14239; 14396; 15436; 14718; 14241; 14130;
   14297; 14290; 14395; 14230; 14400; 15177; 14207; 1294; 14140; 14421; 15683; 14388; 15177;
   14129; 14142; 14121; 14124; 14334; 15684; 15177; 14433; 14126; 14153; 14154; 14138; 14421;
   14159; 14153; 14143; 14437; 14154; 14445; 14448; 14255; 14134; 14459; 1285; 14130; 14126;
   14149; 14150; 14122; 14129; 14254; 14170; 14140; 14370; 11564; 14142; 14122; 14486; 14130;
   14126; 14185; 14126; 14144; 15747; 14185; 14149
  ].

(** States 15750 to 15899. *)
Definition ts_primary_state_ids_15750 : list Z :=
  [
   14230; 14119; 14366; 14185; 14528; 14311; 14185; 15757; 14533; 14528; 14189; 14357; 14533;
   14208; 14187; 14153; 14248; 14535; 14391; 14154; 14394; 14291; 14179; 14395; 14400; 14179;
   14129; 14190; 14200; 14421; 14190; 14128; 14550; 14200; 14129; 14134; 14535; 14130; 14334;
   14433; 14975; 14213; 14214; 14149; 14437; 14561; 14150; 14291; 14120; 14122; 14297; 14187;
   14566; 14568; 14570; 14126; 14140; 14573; 15808; 3554; 14575; 14550; 14561; 14291; 14575;
   14132; 14133; 15510; 14619; 14620; 14167; 14187; 14153; 14154; 14207; 14230; 14233; 14242;
   14246; 14130; 14119; 14142; 14456; 14482; 14140; 14619; 14684; 14142; 14408; 14620; 14693;
   14566; 14122; 14213; 14187; 14126; 14153; 14146; 11601; 14147; 15850; 14214; 14568; 14154;
   14207; 14153; 1288; 14233; 14242; 14246; 15860; 1289; 14142; 14252; 14130; 14570; 14185;
   14263; 14128; 14134; 14140; 14303; 14285; 14298; 11558; 13608; 1290; 14303; 14130; 14142;
   14189; 14330; 14259; 14339; 14175; 14176; 1291; 14119; 14149; 11601; 14573; 14359; 14150;
   14552; 1292; 14575; 14120; 14365; 14154; 14134
  ].

(** States 15900 to 16006. *)
Definition ts_primary_state_ids_15900 : list Z :=
  [
   14361; 14427; 14130; 14149; 11547; 14451; 14456; 14482; 14511; 1293; 1294; 14150; 14150;
   11601; 14546; 14179; 11563; 14366; 14547; 15919; 14558; 14190; 14140; 14200; 14185; 14128;
   14488; 15927; 14189; 14236; 14134; 14259; 11552; 14209; 14684; 14210; 14211; 14370; 14130;
   14710; 14140; 14140; 14718; 14382; 14142; 14130; 14408; 14179; 14190; 14458; 14693; 14254;
   14384; 15510; 14185; 14227; 14142; 14189; 14200; 15416; 14359; 14142; 15436; 14558; 14213;
   14214; 11601; 14234; 1297; 1209; 14179; 14190; 14200; 14213; 14239; 14214; 14247; 14241;
   14535; 14396; 14150; 14121; 14208; 1297; 14128; 14248; 14213; 14214; 1273; 1209; 14134;
   13608; 14396; 14619; 14290; 11554; 14620; 14330; 14388; 15999; 1298; 14121; 14230; 14388;
   14230; 14233; 14130
  ].

Definition ts_primary_state_ids : list Z :=
  ts_primary_state_ids_0
  ++ ts_primary_state_ids_150
  ++ ts_primary_state_ids_300
  ++ ts_primary_state_ids_450
  ++ ts_primary_state_ids_600
  ++ ts_primary_state_ids_750
  ++ ts_primary_state_ids_900
  ++ ts_primary_state_ids_1050
  ++ ts_primary_state_ids_1200
  ++ ts_primary_state_ids_1350
  ++ ts_primary_state_ids_1500
  ++ ts_primary_state_ids_1650
  ++ ts_primary_state_ids_1800
  ++ ts_primary_state_ids_1950
  ++ ts_primary_state_ids_2100
  ++ ts_primary_state_ids_2250
  ++ ts_primary_state_ids_2400
  ++ ts_primary_state_ids_2550
  ++ ts_primary_state_ids_2700
  ++ ts_primary_state_ids_2850
  ++ ts_primary_state_ids_3000
  ++ ts_primary_state_ids_3150
  ++ ts_primary_state_ids_3300
  ++ ts_primary_state_ids_3450
  ++ ts_primary_state_ids_3600
  ++ ts_primary_state_ids_3750
  ++ ts_primary_state_ids_3900
  ++ ts_primary_state_ids_4050
  ++ ts_primary_state_ids_4200
  ++ ts_primary_state_ids_4350
  ++ ts_primary_state_ids_4500
  ++ ts_primary_state_ids_4650
  ++ ts_primary_state_ids_4800
  ++ ts_primary_state_ids_4950
  ++ ts_primary_state_ids_5100
  ++ ts_primary_state_ids_5250
  ++ ts_primary_state_ids_5400
  ++ ts_primary_state_ids_5550
  ++ ts_primary_state_ids_5700
  ++ ts_primary_state_ids_5850
  ++ ts_primary_state_ids_6000
  ++ ts_primary_state_ids_6150
  ++ ts_primary_state_ids_6300
  ++ ts_primary_state_ids_6450
  ++ ts_primary_state_ids_6600
  ++ ts_primary_state_ids_6750
  ++ ts_primary_state_ids_6900
  ++ ts_primary_state_ids_7050
  ++ ts_primary_state_ids_7200
  ++ ts_primary_state_ids_7350
  ++ ts_primary_state_ids_7500
  ++ ts_primary_state_ids_7650
  ++ ts_primary_state_ids_7800
  ++ ts_primary_state_ids_7950
  ++ ts_primary_state_ids_8100
  ++ ts_primary_state_ids_8250
  ++ ts_primary_state_ids_8400
  ++ ts_primary_state_ids_8550
  ++ ts_primary_state_ids_8700
  ++ ts_primary_state_ids_8850
  ++ ts_primary_state_ids_9000
  ++ ts_primary_state_ids_9150
  ++ ts_primary_state_ids_9300
  ++ ts_primary_state_ids_9450
  ++ ts_primary_state_ids_9600
  ++ ts_primary_state_ids_9750
  ++ ts_primary_state_ids_9900
  ++ ts_primary_state_ids_10050
  ++ ts_primary_state_ids_10200
  ++ ts_primary_state_ids_10350
  ++ ts_primary_state_ids_10500
  ++ ts_primary_state_ids_10650
  ++ ts_primary_state_ids_10800
  ++ ts_primary_state_ids_10950
  ++ ts_primary_state_ids_11100
  ++ ts_primary_state_ids_11250
  ++ ts_primary_state_ids_11400
  ++ ts_primary_state_ids_11550
  ++ ts_primary_state_ids_11700
  ++ ts_primary_state_ids_11850
  ++ ts_primary_state_ids_12000
  ++ ts_primary_state_ids_12150
  ++ ts_primary_state_ids_12300
  ++ ts_primary_state_ids_12450
  ++ ts_primary_state_ids_12600
  ++ ts_primary_state_ids_12750
  ++ ts_primary_state_ids_12900
  ++ ts_primary_state_ids_13050
  ++ ts_primary_state_ids_13200
  ++ ts_primary_state_ids_13350
  ++ ts_primary_state_ids_13500
  ++ ts_primary_state_ids_13650
  ++ ts_primary_state_ids_13800
  ++ ts_primary_state_ids_13950
  ++ ts_primary_state_ids_14100
  ++ ts_primary_state_ids_14250
  ++ ts_primary_state_ids_14400
  ++ ts_primary_state_ids_14550
  ++ ts_primary_state_ids_14700
  ++ ts_primary_state_ids_14850
  ++ ts_primary_state_ids_15000
  ++ ts_primary_state_ids_15150
  ++ ts_primary_state_ids_15300
  ++ ts_primary_state_ids_15450
  ++ ts_primary_state_ids_15600
  ++ ts_primary_state_ids_15750
  ++ ts_primary_state_ids_15900.
