(* ===== verification/FieldTheorems.v ===== *)
(** * The field, alias and primary-state tables are well formed

    The runtime follows the numbers of these tables without checks; the
    theorems bound every such access and state the orders and the canonical
    forms its lookups rely on. *)

From stdpp Require Import pmap.
From Stdlib Require Import Sorting.Sorted.
From S2P Require Import Prelude.
From S2P Require Import Symbols.
From S2P Require Import LexModes.
From S2P Require Import Fields.
From S2P Require Import PrimaryStates.

(** ** Field maps *)

(** The entries of a slice, [None] if it leaves the table. *)
Definition slice_entries (sl : TSFieldMapSlice) : option (list TSFieldMapEntry) :=
  if (0 <=? slice_index sl) && (0 <=? slice_length sl)
     && (slice_index sl + slice_length sl <=? Z.of_nat (length ts_field_map_entries))
  then Some (take (Z.to_nat (slice_length sl))
               (drop (Z.to_nat (slice_index sl)) ts_field_map_entries))
  else None.

(** The field entries of a production. *)
Definition production_fields (p : nat) : option (list TSFieldMapEntry) :=
  ts_field_map_slices !! p ≫= slice_entries.

(** The order of the entries of a production: by field, then by child. *)
Definition entry_before (e e' : TSFieldMapEntry) : bool :=
  Nat.ltb (field_number (field_id e)) (field_number (field_id e'))
  || Nat.eqb (field_number (field_id e)) (field_number (field_id e'))
     && (child_index e <? child_index e').

Definition child_in_range (e : TSFieldMapEntry) : bool :=
  (0 <=? child_index e) && (child_index e <? Z.of_nat MAX_ALIAS_SEQUENCE_LENGTH).

Fixpoint ordered {A} (lt : A → A → bool) (l : list A) : bool :=
  match l with
  | x :: (y :: _) as l' => lt x y && ordered lt l'
  | _ => true
  end.

Lemma ordered_sorted {A} (lt : A → A → bool) l :
  (∀ x y z, lt x y = true → lt y z = true → lt x z = true) →
  ordered lt l = true → StronglySorted lt l.
Proof.
  intros Htr. induction l as [|x [|y l] IH]; intros Ho; [constructor|by repeat constructor|].
  cbn [ordered] in Ho. apply andb_prop in Ho as [Hxy Ho]. specialize (IH Ho).
  constructor; [done|]. inversion IH as [|?? Hs Hall]; subst.
  constructor; [by rewrite Hxy|].
  eapply Forall_impl; [exact Hall|]. intros z Hz. apply Is_true_true, (Htr x y z); [done|].
  by apply Is_true_true.
Qed.

Lemma entry_before_trans e e' e'' :
  entry_before e e' = true → entry_before e' e'' = true → entry_before e e'' = true.
Proof. unfold entry_before. lia. Qed.

Definition field_check (p : nat) : bool :=
  match production_fields p with
  | Some es => ordered entry_before es && forallb child_in_range es
  | None => false
  end.

Lemma field_check_all : forallb field_check (seq 0 PRODUCTION_ID_COUNT) = true.
Proof. by vm_compute. Qed.

(** The field map of a production is well formed: its slice lies in the entry
    table, its entries are strictly ordered by field and child, so that no
    child has the same field twice, and every child it names is among the
    positions a production can have. *)
Lemma production_fields_ok p :
  (p < PRODUCTION_ID_COUNT)%nat →
  ∃ es, production_fields p = Some es ∧ StronglySorted entry_before es
    ∧ Forall (λ e, 0 ≤ child_index e < Z.of_nat MAX_ALIAS_SEQUENCE_LENGTH) es.
Proof.
  intros Hp. pose proof field_check_all as Hc. rewrite forallb_forall in Hc.
  specialize (Hc p ltac:(apply in_seq; lia)). unfold field_check in Hc.
  destruct (production_fields p) as [es|]; [|done]. apply andb_prop in Hc as [Ho Hf].
  exists es. split_and!; [done| |].
  - apply ordered_sorted; [apply entry_before_trans|done].
  - apply Forall_forall. intros e He. rewrite forallb_forall in Hf.
    apply list_elem_of_In, Hf in He. unfold child_in_range in He. lia.
Qed.

(** ** Fields *)

Lemma all_fields_lookup f : (None :: (Some <$> all_fields)) !! field_number f = Some (Some f).
Proof. by destruct f. Qed.

(** The name of a field. *)
Definition field_name (f : ts_field) : string :=
  default EmptyString (default None (ts_field_names !! field_number f)).

Definition field_direct (f : ts_field) : bool :=
  existsb (λ p, existsb (λ e, bool_decide (field_id e = f) && negb (inherited e))
    (default [] (production_fields p))) (seq 0 PRODUCTION_ID_COUNT).

Lemma fields_direct : forallb field_direct all_fields = true.
Proof. by vm_compute. Qed.

(** The fields are named faithfully and none is dead: field numbers start
    at 1, where the name table has its [NULL], and each is below the size of
    the name table; two fields are numbered in the strict order of their
    names, so that the names are distinct and a search by name may stop early;
    and each field is given by some production directly, not only inherited
    from a child. *)
Theorem fields_named_in_order f g :
  ts_field_names !! 0%nat = Some None
  ∧ (1 ≤ field_number f ≤ FIELD_COUNT)%nat
  ∧ ts_field_names !! field_number f = Some (Some (field_name f))
  ∧ Nat.ltb (field_number f) (field_number g) = String.ltb (field_name f) (field_name g)
  ∧ ∃ p es e, production_fields p = Some es ∧ e ∈ es ∧ field_id e = f ∧ inherited e = false.
Proof.
  split_and!; [done|destruct f; vm_compute; lia..|by destruct f| |].
  - destruct f, g; reflexivity.
  - pose proof fields_direct as Hd. rewrite forallb_forall in Hd.
    assert (List.In f all_fields) as Hin by (destruct f; simpl; tauto).
    apply Hd in Hin. unfold field_direct in Hin.
    apply existsb_exists in Hin as (p & _ & Hin). apply existsb_exists in Hin as (e & He & Hk).
    apply andb_prop in Hk as [Hk Hi]. apply bool_decide_eq_true in Hk. apply negb_true_iff in Hi.
    destruct (production_fields p) as [es|] eqn:Hp; [|done].
    exists p, es, e. by rewrite list_elem_of_In.
Qed.

(** ** Primary states *)

(** Checks a table from state [n] on, given the states below [n] that are their
    own primary state (state [k] as [k + 1]). *)
Fixpoint primary_check (seen : Pmap unit) (n : Z) (l : list Z) : bool :=
  match l with
  | [] => true
  | p :: l =>
      if p =? n then primary_check (<[Z.to_pos (n + 1) := tt]> seen) (n + 1) l
      else (0 <=? p) && (p <? n)
        && (if seen !! Z.to_pos (p + 1) is Some _ then true else false)
        && primary_check seen (n + 1) l
  end.

Lemma primary_check_sound ids pre l seen s p :
  ids = pre ++ l →
  (∀ k, 0 ≤ k → is_Some (seen !! Z.to_pos (k + 1)) → ids !! Z.to_nat k = Some k) →
  primary_check seen (Z.of_nat (length pre)) l = true →
  (length pre ≤ s)%nat → ids !! s = Some p →
  0 ≤ p ≤ Z.of_nat s ∧ ids !! Z.to_nat p = Some p.
Proof.
  intros Hids. revert pre seen Hids. induction l as [|q l IH]; intros pre seen Hids Hseen Hc Hs Hp.
  { rewrite app_nil_r in Hids. subst. apply lookup_lt_Some in Hp. lia. }
  assert (ids !! length pre = Some q) as Hq.
  { rewrite Hids, lookup_app_r, Nat.sub_diag; [done|lia]. }
  assert (Z.of_nat (length pre) + 1 = Z.of_nat (length (pre ++ [q]))) as Hn.
  { rewrite length_app. simpl. lia. }
  rewrite (cons_middle q pre l), (assoc_L (++)) in Hids. simpl in Hc. rewrite Hn in Hc.
  destruct (decide (s = length pre)) as [->|Hne]; case_match eqn:Hqn.
  - simplify_eq. split; [lia|]. replace (Z.to_nat p) with (length pre) by lia. done.
  - simplify_eq. destruct (seen !! _) eqn:Hl; [|by rewrite andb_false_r in Hc].
    split; [lia|]. apply Hseen; [lia|]. by rewrite Hl.
  - eapply IH; [done| |exact Hc|rewrite length_app; simpl; lia|done].
    intros k Hk. destruct (decide (k = q)) as [->|Hkq].
    + intros _. by replace (Z.to_nat q) with (length pre) by lia.
    + rewrite lookup_insert_ne by (rewrite length_app; simpl; lia). by apply Hseen.
  - eapply (IH (pre ++ [q]) seen); [done|done| |rewrite length_app; simpl; lia|done].
    by apply andb_prop in Hc as [_ Hc].
Qed.

Lemma primary_check_ids : primary_check ∅ 0 ts_primary_state_ids = true.
Proof. by vm_compute. Qed.

Lemma primary_states_length : length ts_primary_state_ids = STATE_COUNT.
Proof. by vm_compute. Qed.

(** The primary states are canonical representatives: there is one for each
    parse state, it is no later than the state, and it is its own primary
    state, so that following the table once is enough. *)
Lemma primary_canonical s :
  (s < STATE_COUNT)%nat →
  ∃ p, ts_primary_state_ids !! s = Some p ∧ 0 ≤ p ≤ Z.of_nat s
    ∧ ts_primary_state_ids !! Z.to_nat p = Some p.
Proof.
  intros Hs. rewrite <- primary_states_length in Hs.
  apply lookup_lt_is_Some in Hs as [p Hp]. exists p. split; [done|].
  apply (primary_check_sound ts_primary_state_ids [] ts_primary_state_ids ∅); [done| | |simpl; lia|done].
  - intros k _ Hk. by apply is_Some_None in Hk.
  - apply primary_check_ids.
Qed.

(** ** Aliases *)

(** The records of the alias map, each a symbol and the names it can have; the
    map ends with a zero, and nothing follows it. *)
Fixpoint alias_records (fuel : nat) (l : list nat) : option (list (nat * list nat)) :=
  match fuel, l with
  | S fuel, 0%nat :: l => if l is [] then Some [] else None
  | S fuel, s :: n :: l =>
      if (n <=? length l)%nat then
        rs ← alias_records fuel (drop n l); Some ((s, take n l) :: rs)
      else None
  | _, _ => None
  end.

(** The alias of child [i] of production [p], if it has one. *)
Definition alias_at (p i : nat) : option ts_symbol :=
  row ← ts_alias_sequences !! p; a ← row !! i;
  if decide (a = ts_builtin_sym_end) then None else Some a.

Definition public_index (s : nat) : option nat :=
  symbol_index ∘ snd <$> ts_symbol_map !! s.

Definition used_aliases : list ts_symbol :=
  List.flat_map (λ p, omap (alias_at p) (seq 0 MAX_ALIAS_SEQUENCE_LENGTH))
    (seq 0 PRODUCTION_ID_COUNT).

(** Aliases name nodes: they are visible, named and public symbols. *)
Definition alias_symbol_ok (a : ts_symbol) : bool :=
  bool_decide (public_index (symbol_index a) = Some (symbol_index a))
  && existsb (λ sm, bool_decide (sm.1 = a) && visible sm.2 && named sm.2) ts_symbol_metadata.

Definition alias_record_ok (r : nat * list nat) : bool :=
  (TOKEN_COUNT <=? r.1)%nat
  && bool_decide (head r.2 = public_index r.1)
  && forallb (λ a, bool_decide (Some a = public_index r.1 ∨ a ∈ symbol_index <$> used_aliases)) r.2.

Lemma alias_at_bounds p i a :
  alias_at p i = Some a → (p < PRODUCTION_ID_COUNT ∧ i < MAX_ALIAS_SEQUENCE_LENGTH)%nat.
Proof.
  unfold alias_at. destruct (ts_alias_sequences !! p) as [row|] eqn:Hrow; [|done]. simpl.
  destruct (row !! i) eqn:Hi; [|done]. intros _.
  assert (Forall (λ r, length r = MAX_ALIAS_SEQUENCE_LENGTH) ts_alias_sequences) as Hlen.
  { apply (bool_decide_unpack _). by vm_compute. }
  rewrite Forall_lookup in Hlen. apply Hlen in Hrow as Hr.
  apply lookup_lt_Some in Hi, Hrow. split; [|lia].
  by assert (length ts_alias_sequences = PRODUCTION_ID_COUNT) as <- by by vm_compute.
Qed.

Lemma alias_at_used p i a : alias_at p i = Some a → a ∈ used_aliases.
Proof.
  intros Ha. destruct (alias_at_bounds _ _ _ Ha) as [Hp Hi].
  apply list_elem_of_In, in_flat_map. exists p.
  split; [apply in_seq; lia|]. apply list_elem_of_In, list_elem_of_omap.
  exists i. split; [apply elem_of_seq; lia|done].
Qed.

(** Renamings are consistent: an alias of a child is a visible, named and
    public symbol; the alias map is complete up to its terminating zero, its
    records are of non-terminals, each begins with the public symbol of the
    non-terminal, and every further name in it is that symbol or an alias some
    production gives. *)
Theorem alias_tables_consistent :
  (∀ p i a, alias_at p i = Some a →
    public_index (symbol_index a) = Some (symbol_index a)
    ∧ ∃ m, (a, m) ∈ ts_symbol_metadata ∧ visible m = true ∧ named m = true)
  ∧ ∃ rs, alias_records (length ts_non_terminal_alias_map) ts_non_terminal_alias_map = Some rs
    ∧ Forall (λ r, (TOKEN_COUNT ≤ r.1)%nat ∧ head r.2 = public_index r.1
        ∧ Forall (λ a, Some a = public_index r.1 ∨ a ∈ symbol_index <$> used_aliases) r.2) rs.
Proof.
  split.
  - intros p i a Ha%alias_at_used.
    assert (Forall alias_symbol_ok used_aliases) as Hall.
    { apply (bool_decide_unpack _). by vm_compute. }
    rewrite Forall_forall in Hall. specialize (Hall a Ha). apply Is_true_true in Hall.
    apply andb_prop in Hall as [Hpub Hm]. apply bool_decide_eq_true in Hpub. split; [done|].
    apply existsb_exists in Hm as ([a' m] & Hin & Hm). simpl in Hm.
    apply andb_prop in Hm as [[->%bool_decide_eq_true Hv]%andb_prop Hn].
    exists m. by rewrite list_elem_of_In.
  - assert (∃ rs, alias_records (length ts_non_terminal_alias_map) ts_non_terminal_alias_map
      = Some rs ∧ Forall alias_record_ok rs) as (rs & Hrs & Hok).
    { eexists. split; [by vm_compute|]. apply (bool_decide_unpack _). by vm_compute. }
    exists rs. split; [done|]. eapply Forall_impl; [exact Hok|]. intros r Hr%Is_true_true.
    apply andb_prop in Hr as [[Ht Hh%bool_decide_eq_true]%andb_prop Hf].
    split_and!; [lia|done|]. rewrite forallb_forall in Hf. apply Forall_forall.
    intros a Ha. apply list_elem_of_In, Hf in Ha. by apply bool_decide_eq_true in Ha.
Qed.
