(* ===== verification/ParserTheorems.v ===== *)
(** * The parser's tables fit the scanner and the lexer

    The scanner of [scanner.c] and the tables of [parser.c] agree only by
    convention: the scanner's token numbers index the parser's arrays.  The
    theorems here check that convention on the actual tables: every keyword
    the scanner reports has the grammar symbol of that name, every parse state
    uses a lex state and an external state that exist, and the rows are such
    that a fragment that is acceptable at all is emitted. *)

From S2P Require Import Prelude.
From S2P Require Import Lexer.
From S2P Require Import Chars.
From S2P Require Import Tokens.
From S2P Require Import Words.
From S2P Require Import Multiline.
From S2P Require Import Fragment.
From S2P Require Import FragmentSpec.
From S2P Require Import Scanner.
From S2P Require Import FragmentTheorems.
From S2P Require Import Symbols.
From S2P Require Import LexTable.
From S2P Require Import LexDfa.
From S2P Require Import Regex.
From S2P Require Import LexCheck.
From S2P Require Import LexTokens.
From S2P Require Import External.
From S2P Require Import LexModes.

(** ** Reading the tables *)

Definition external_row (r : nat) : list ts_external_token :=
  default [] (ts_external_scanner_states !! r).

(** The array [valid_symbols] the scanner receives in the external state [r]:
    the scanner indexes it with its own enumeration. *)
Definition valid_symbols_of (r : nat) : symbols :=
  λ t, existsb (λ e, external_index e =? token_index t)%nat (external_row r).

(** The grammar symbol of the token the scanner reports as [t]. *)
Definition external_symbol (t : TokenType) : option ts_symbol :=
  snd <$> List.find (λ e, external_index e.1 =? token_index t)%nat
            ts_external_scanner_symbol_map.

(** C17. The two enumerations of the external tokens agree: a word of the
    scanner's tables is reported under the grammar symbol that is named after
    it (the word [at] of a raise statement has a name of its own), and the
    other tokens under their own symbols. *)
Theorem external_symbols_agree :
  (∀ w t, (w, t) ∈ all_words → ∃ s, external_symbol t = Some s
     ∧ tolower <$> codes (symbol_name s)
       = if bool_decide (t = KRAISEAT) then codes "kraiseat" else codes "k" ++ w)
  ∧ external_symbol PP_FRAGMENT_EXPR = Some sym_ppFragmentExpr
  ∧ external_symbol PP_FRAGMENT_STMT = Some sym_ppFragmentStmt
  ∧ external_symbol LITERAL_STRING_MULTILINE = Some sym__literalStringMultiline
  ∧ external_symbol IDENTIFIER = Some sym_identifier.
Proof.
  split; [|by vm_compute]. intros w t Hw.
  set (name wt := if bool_decide (wt.2 = KRAISEAT) then codes "kraiseat"
                  else codes "k" ++ wt.1 : list Z).
  assert (Forall (λ wt, (λ s, tolower <$> codes (symbol_name s)) <$> external_symbol wt.2
    = Some (name wt)) all_words) as Hall by (apply (bool_decide_unpack _); by vm_compute).
  rewrite Forall_forall in Hall. specialize (Hall _ Hw).
  apply fmap_Some in Hall as (s & Hs & Heq). exists s. split; [done|]. by rewrite <- Heq.
Qed.

(** ** Lex modes *)

Definition mode_ok (m : TSLexMode) : bool :=
  existsb (λ s, lex_state m =? Z.of_nat s) lex_states
  && (0 <=? lex_state m)
  && (0 <=? external_lex_state m) && (external_lex_state m <? 334).

Lemma all_modes_ok : forallb mode_ok ts_lex_modes = true.
Proof. by vm_compute. Qed.

(** Every parse state starts the internal lexer in one of the lex states
    of [lex_states], and reads an existing row of the external table; so
    there is a lex mode for each of the parse states. *)
Theorem lex_modes_in_tables n m :
  ts_lex_modes !! n = Some m →
  Z.to_nat (lex_state m) ∈ lex_states
  ∧ is_Some (ts_external_scanner_states !! Z.to_nat (external_lex_state m))
  ∧ (n < STATE_COUNT)%nat.
Proof.
  intros Hm. pose proof all_modes_ok as Hall. rewrite forallb_forall in Hall.
  specialize (Hall m (proj1 (list_elem_of_In _ _) (list_elem_of_lookup_2 _ _ _ Hm))).
  unfold mode_ok in Hall. rewrite !andb_true_iff in Hall.
  destruct Hall as [[[(s & Hs & Heq)%existsb_exists _] He] Hlt].
  split_and!.
  - apply Z.eqb_eq in Heq as ->. rewrite Nat2Z.id. by apply list_elem_of_In.
  - apply lookup_lt_is_Some.
    assert (length ts_external_scanner_states = 334%nat) as -> by (by vm_compute). lia.
  - apply lookup_lt_Some in Hm.
    assert (length ts_lex_modes = STATE_COUNT) as Hl by (by vm_compute). lia.
Qed.

(** ** Fragments in the parser's states *)

Lemma stmt_state_expr r :
  valid_symbols_of r PP_FRAGMENT_STMT = true → valid_symbols_of r PP_FRAGMENT_EXPR = true.
Proof.
  assert (forallb (λ row,
    negb (existsb (λ e, external_index e =? 1)%nat row)
    || existsb (λ e, external_index e =? 0)%nat row) ts_external_scanner_states = true)
    as Hall by (by vm_compute).
  unfold valid_symbols_of, external_row. cbn [token_index].
  destruct (ts_external_scanner_states !! r) as [row|] eqn:Hr; [|done].
  rewrite forallb_forall in Hall.
  specialize (Hall row (proj1 (list_elem_of_In _ _) (list_elem_of_lookup_2 _ _ _ Hr))).
  simpl. apply orb_true_iff in Hall as [Hn%negb_true_iff|Hy]; [congruence|done].
Qed.

Lemma fragment_open_bracket cs n :
  fragment_open cs = Some n → peek cs = c! "{" ∨ peek cs = c! "(".
Proof.
  unfold fragment_open, next_item. intros Ho.
  destruct ((peek cs =? c! "{") || (peek cs =? c! "(")) eqn:E; [lia|].
  repeat case_match; simplify_eq.
Qed.

Section state.
Context `{TSLexerOk L}.

(** In every parser state that accepts a fragment token at all, a
    balanced fragment whose body is on one line and is not a list of routine
    directives is emitted: as a statement fragment, ending at its last
    directive, if it has a top-level semicolon and the state accepts
    statement fragments, and otherwise as an expression fragment together
    with the identifier characters that follow. *)
Theorem fragment_emitted_in_state fuel p (l : L) r n its st tl :
  (length (rest l) < fuel)%nat → Z.of_nat (length (rest l)) < 2 ^ 32 →
  fragment_open (rest l) = Some n → runs initial_frag (drop n (rest l)) its st tl →
  saw_newline st = false → saw_directive st && directives_only st = false →
  valid_symbols_of r PP_FRAGMENT_EXPR || valid_symbols_of r PP_FRAGMENT_STMT = true →
  if saw_top_level_semi st && valid_symbols_of r PP_FRAGMENT_STMT
  then emits fuel p l (valid_symbols_of r) PP_FRAGMENT_STMT tl
  else emits fuel p l (valid_symbols_of r) PP_FRAGMENT_EXPR
         (drop (span_len in_chain tl) tl).
Proof.
  intros Hf Hb Ho Hr Hn Hd Hv.
  assert (valid_symbols_of r PP_FRAGMENT_EXPR = true) as He.
  { apply orb_true_iff in Hv as [?|?%stmt_state_expr]; done. }
  pose proof (fragment_open_bracket _ _ Ho) as Hp.
  destruct (saw_top_level_semi st && valid_symbols_of r PP_FRAGMENT_STMT) eqn:Hs;
    (apply emits_token_at; [done..|]); (apply token_at_bracket; [done|]);
    (split; [done|]); exists n, its, st, tl; rewrite Hs; done.
Qed.
End state.

Lemma fragment_emitted_in_state_witness :
  if true && valid_symbols_of 3 PP_FRAGMENT_STMT
  then emits (L:=StrLexer) 40 None (str_lexer "{$if A}x;{$endif}") (valid_symbols_of 3)
         PP_FRAGMENT_STMT []
  else emits (L:=StrLexer) 40 None (str_lexer "{$if A}x;{$endif}") (valid_symbols_of 3)
         PP_FRAGMENT_EXPR (drop (span_len in_chain []) []).
Proof.
  refine (fragment_emitted_in_state 40 None (str_lexer "{$if A}x;{$endif}") 3 7
    [IWord (codes "x") false; IChar (c! ";"); IDirective (codes "endif")]
    (MkFrag 0 false true false false) [] _ _ _ _ _ _ _); try concrete.
  do 3 (eapply runs_step; [concrete|concrete|by vm_compute|]).
  constructor. concrete.
Defined.

(** ** No dead tokens *)

(** Every external state after the error-recovery state belongs to a parse
    state. *)
Lemma external_states_used r :
  (2 ≤ r < 334)%nat → ∃ n m, ts_lex_modes !! n = Some m ∧ external_lex_state m = Z.of_nat r.
Proof.
  intros Hr.
  assert (forallb (λ r, existsb (λ m, external_lex_state m =? r) ts_lex_modes)
    (Z.of_nat <$> seq 2 332) = true) as Hall by (by vm_compute).
  rewrite forallb_forall in Hall. specialize (Hall (Z.of_nat r)).
  rewrite existsb_exists in Hall. destruct Hall as (m & Hm & Heq).
  { apply list_elem_of_In, list_elem_of_fmap_2, elem_of_seq. lia. }
  apply list_elem_of_In, list_elem_of_lookup in Hm as [n Hn]. exists n, m. split; [done|lia].
Qed.

(** Every token the scanner can report is acceptable in a parse state
    other than error recovery. *)
Theorem no_dead_token t :
  ∃ n m, ts_lex_modes !! n = Some m ∧ external_lex_state m ≠ 1
    ∧ valid_symbols_of (Z.to_nat (external_lex_state m)) t = true.
Proof.
  assert (forallb (λ t, existsb (λ r, valid_symbols_of r t) (seq 2 332)) all_tokens = true)
    as Hall by (by vm_compute).
  rewrite forallb_forall in Hall.
  specialize (Hall t (proj1 (list_elem_of_In _ _) (elem_of_all_tokens t))).
  apply existsb_exists in Hall as (r & Hr%list_elem_of_In & Hv).
  apply elem_of_seq in Hr.
  destruct (external_states_used r) as (n & m & Hm & Heq); [lia|].
  exists n, m. rewrite Heq, Nat2Z.id. split_and!; [done|lia|done].
Qed.

(** ** Public symbols *)

Definition metadata_eqb (m1 m2 : TSSymbolMetadata) : bool :=
  Bool.eqb (visible m1) (visible m2) && Bool.eqb (named m1) (named m2)
  && Bool.eqb (supertype m1) (supertype m2).

Lemma metadata_eqb_sound m1 m2 : metadata_eqb m1 m2 = true → m1 = m2.
Proof.
  destruct m1, m2. unfold metadata_eqb. simpl. rewrite !andb_true_iff, !eqb_true_iff.
  by intros [[-> ->] ->].
Qed.

(** The visible symbols that stand for themselves, with what identifies them
    in a syntax tree. *)
Definition public_kinds : list (string * bool * ts_symbol) :=
  List.map (λ s, (symbol_name s, named (metadata s), s))
    (List.filter (λ s, visible (metadata s) && symbol_eqb (public_symbol s) s) all_symbols).

Definition kind_eqb (x y : string * bool * ts_symbol) : bool :=
  Bool.eqb x.1.2 y.1.2 && String.eqb x.1.1 y.1.1.

Fixpoint kinds_distinct (ks : list (string * bool * ts_symbol)) : bool :=
  match ks with
  | [] => true
  | k :: ks' => negb (existsb (kind_eqb k) ks') && kinds_distinct ks'
  end.

Lemma kinds_distinct_inj ks k1 k2 :
  kinds_distinct ks = true → k1 ∈ ks → k2 ∈ ks → kind_eqb k1 k2 = true → k1 = k2.
Proof.
  assert (∀ x y, kind_eqb x y = kind_eqb y x) as Hsym.
  { intros [[n1 b1] s1] [[n2 b2] s2]. unfold kind_eqb. simpl. rewrite String.eqb_sym.
    by destruct b1, b2. }
  assert (∀ k x ks, existsb (kind_eqb k) ks = false → x ∈ ks → kind_eqb k x = false) as Hno.
  { intros k x xs He Hx. apply not_true_iff_false. intros Hk.
    apply not_true_iff_false in He. apply He, existsb_exists. exists x.
    split; [by apply list_elem_of_In|done]. }
  induction ks as [|k ks IH]; simpl; [by intros _ ?%not_elem_of_nil|].
  intros [Hk%negb_true_iff Hks]%andb_true_iff. rewrite !elem_of_cons.
  intros [->|H1] [->|H2] Heq; [done|..].
  - by rewrite (Hno _ _ _ Hk H2) in Heq.
  - rewrite Hsym, (Hno _ _ _ Hk H1) in Heq. done.
  - auto.
Qed.

Lemma public_symbol_facts s :
  public_symbol (public_symbol s) = public_symbol s
  ∧ symbol_name (public_symbol s) = symbol_name s
  ∧ metadata (public_symbol s) = metadata s.
Proof.
  pose proof (symbol_forall
    (λ s, let s' := public_symbol s in
          symbol_eqb (public_symbol s') s'
          && String.eqb (symbol_name s') (symbol_name s)
          && metadata_eqb (metadata s') (metadata s)) ltac:(by vm_compute) s) as Hs.
  cbn zeta in Hs. rewrite !andb_true_iff in Hs. destruct Hs as [[H1 H2] H3].
  split_and!; [by apply symbol_eqb_spec|by apply String.eqb_eq|by apply metadata_eqb_sound].
Qed.

Lemma public_kinds_distinct : kinds_distinct public_kinds = true.
Proof. by vm_compute. Qed.

(** The public symbol of a symbol has the same name and the same
    visibility and stands for itself, and a visible symbol is determined, up
    to its public symbol, by its name and by whether it is named: the two
    things by which a client of the syntax tree recognises a node. *)
Theorem public_symbols_canonical s1 s2 :
  (public_symbol (public_symbol s1) = public_symbol s1
   ∧ symbol_name (public_symbol s1) = symbol_name s1
   ∧ metadata (public_symbol s1) = metadata s1)
  ∧ (visible (metadata s1) = true → visible (metadata s2) = true →
     symbol_name s1 = symbol_name s2 → named (metadata s1) = named (metadata s2) →
     public_symbol s1 = public_symbol s2).
Proof.
  split; [apply public_symbol_facts|]. intros Hv1 Hv2 Hn Hk.
  assert (∀ s, visible (metadata s) = true →
    (symbol_name s, named (metadata s), public_symbol s) ∈ public_kinds) as Hin.
  { intros s Hv. destruct (public_symbol_facts s) as (Hp & Hname & Hmeta).
    rewrite <- Hname, <- Hmeta. apply list_elem_of_In, in_map_iff.
    exists (public_symbol s). split; [done|]. apply filter_In. split.
    - apply list_elem_of_In, elem_of_all_symbols.
    - rewrite Hmeta, Hv, Hp. by apply symbol_eqb_spec. }
  pose proof (kinds_distinct_inj public_kinds _ _ public_kinds_distinct (Hin s1 Hv1)
    (Hin s2 Hv2)) as Hinj.
  rewrite Hn, Hk in Hinj. unfold kind_eqb in Hinj. simpl in Hinj.
  rewrite eqb_reflx, String.eqb_refl in Hinj. specialize (Hinj eq_refl). congruence.
Qed.
