(* ===== verification/DynArray.v ===== *)
(** * The growable array of [tree_sitter/array.h]

    An array is a pointer to a heap block with two 32-bit counters.  A block
    is modelled as its list of elements, where [None] is a cell that was never
    written; the null pointer is [None].  Accesses outside the block, reads of
    cells that were never written and failed assertions are [OutOfBounds].
    The multiplications by the element size are on [size_t] and cannot
    overflow, so indices count elements.  The allocator ([ts_malloc],
    [ts_realloc]) is a parameter: it may fail and return the null pointer. *)

From S2P Require Import Prelude.

(** ** Blocks *)

Abbreviation block A := (list (option A)).

Section memory.
Context {A : Type}.

(** Reads [n] cells from [i]; no access for [n = 0]. *)
Definition load (b : option (block A)) (i n : Z) : res (block A) :=
  if n =? 0 then Ret []
  else
    match b with
    | None => OutOfBounds
    | Some b =>
      if (0 <=? i) && (0 <? n) && (i + n <=? Z.of_nat (length b))
      then Ret (take (Z.to_nat n) (drop (Z.to_nat i) b)) else OutOfBounds
    end.

(** Writes the cells [xs] at [i]. *)
Definition store (b : option (block A)) (i : Z) (xs : block A) : res (option (block A)) :=
  match xs, b with
  | [], _ => Ret b
  | _, None => OutOfBounds
  | _, Some b =>
    if (0 <=? i) && (i + Z.of_nat (length xs) <=? Z.of_nat (length b))
    then Ret (Some (take (Z.to_nat i) b ++ xs ++ drop (Z.to_nat i + length xs) b))
    else OutOfBounds
  end.

(** An element that has been written. *)
Definition read (b : option (block A)) (i : Z) : res A :=
  xs ← load b i 1;
  match xs with [Some x] => Ret x | _ => OutOfBounds end.

(** [memmove] within a block. *)
Definition memmove (b : option (block A)) (dst src n : Z) : res (option (block A)) :=
  xs ← load b src n;
  store b dst xs.
End memory.
#[global] Arguments load : simpl never.
#[global] Arguments store : simpl never.

(** ** The operations *)

Record Array (A : Type) := MkArray {
  contents : option (block A);
  size : Z;
  capacity : Z;
}.
Arguments MkArray {A} contents size capacity.
Arguments contents {A} a.
Arguments size {A} a.
Arguments capacity {A} a.

Section ops.
Context {A : Type} (zero : A) (alloc_ok : Z → bool).
Implicit Types self other : Array A.

Definition array_new : Array A := MkArray None 0 0.
Definition array_init self : Array A := MkArray None 0 0.

Definition array_get self (index : Z) : res A :=
  if wrap32 index <? size self then read (contents self) index else OutOfBounds.

Definition array_front self : res A := array_get self 0.
Definition array_back self : res A := array_get self (wrap32 (size self - 1)).

Definition array_clear self : Array A := MkArray (contents self) 0 (capacity self).

Definition array_delete self : Array A :=
  match contents self with
  | Some _ => MkArray None 0 0
  | None => self
  end.

Definition array_erase self (index : Z) : res (Array A) :=
  if negb (index <? size self) then OutOfBounds
  else
    b ← memmove (contents self) index (wrap32 (index + 1)) (wrap32 (size self - index - 1));
    Ret (MkArray b (wrap32 (size self - 1)) (capacity self)).

(** [ts_malloc(n)] and [ts_realloc(b, n)]. *)
Definition ts_malloc (n : Z) : option (block A) :=
  if alloc_ok n then Some (replicate (Z.to_nat n) None) else None.

Definition ts_realloc (b : block A) (n : Z) : option (block A) :=
  if alloc_ok n
  then Some (take (Z.to_nat n) b ++ replicate (Z.to_nat n - length b) None) else None.

Definition array_reserve self (new_capacity : Z) : Array A :=
  if capacity self <? new_capacity then
    MkArray
      (match contents self with
       | Some b => ts_realloc b new_capacity
       | None => ts_malloc new_capacity
       end) (size self) new_capacity
  else self.

Definition array_assign self other : res (Array A) :=
  let self := array_reserve self (size other) in
  xs ← load (contents other) 0 (size other);
  b ← store (contents self) 0 xs;
  Ret (MkArray b (size other) (capacity self)).

Definition array_swap self other : Array A * Array A := (other, self).

Definition array_grow self (count : Z) : Array A :=
  let new_size := wrap32 (size self + count) in
  if capacity self <? new_size then
    let new_capacity := wrap32 (capacity self * 2) in
    let new_capacity := if new_capacity <? 8 then 8 else new_capacity in
    let new_capacity := if new_capacity <? new_size then new_size else new_capacity in
    array_reserve self new_capacity
  else self.

Definition array_push self (element : A) : res (Array A) :=
  let self := array_grow self 1 in
  b ← store (contents self) (size self) [Some element];
  Ret (MkArray b (wrap32 (size self + 1)) (capacity self)).

Definition array_grow_by self (count : Z) : res (Array A) :=
  if count =? 0 then Ret self
  else
    let self := array_grow self count in
    b ← store (contents self) (size self) (replicate (Z.to_nat count) (Some zero));
    Ret (MkArray b (wrap32 (size self + count)) (capacity self)).

(** [elements] is [None] for a null pointer. *)
Definition array_splice self (index old_count new_count : Z)
    (elements : option (list A)) : res (Array A) :=
  let new_size := wrap32 (size self + new_count - old_count) in
  let old_end := wrap32 (index + old_count) in
  let new_end := wrap32 (index + new_count) in
  if negb (old_end <=? size self) then OutOfBounds
  else
    let self := array_reserve self new_size in
    b ← (if old_end <? size self
         then memmove (contents self) new_end old_end (wrap32 (size self - old_end))
         else Ret (contents self));
    b ← (if 0 <? new_count then
           match elements with
           | Some xs =>
             ys ← load (Some (Some <$> xs)) 0 new_count;
             store b index ys
           | None => store b index (replicate (Z.to_nat new_count) (Some zero))
           end
         else Ret b);
    Ret (MkArray b (wrap32 (size self + wrap32 (new_count - old_count))) (capacity self)).

Definition array_extend self (count : Z) (xs : list A) : res (Array A) :=
  array_splice self (size self) 0 count (Some xs).

(** [other] is another array, so its block does not move. *)
Definition array_push_all self other : res (Array A) :=
  cells ← load (contents other) 0 (size other);
  match mapM id cells with
  | Some xs => array_extend self (size other) xs
  | None => OutOfBounds
  end.

Definition array_insert self (index : Z) (element : A) : res (Array A) :=
  array_splice self index 0 1 (Some [element]).

Definition array_pop self : res (A * Array A) :=
  let size' := wrap32 (size self - 1) in
  x ← read (contents self) size';
  Ret (x, MkArray (contents self) size' (capacity self)).

(** The [while (size > 1)] loop of [_array__search_sorted]; [cmp x] is
    [compare(&x, needle)]. *)
Fixpoint search_loop (fuel : nat) (cmp : A → res Z) (b : option (block A))
    (index size : Z) : res Z :=
  match fuel with
  | O => OutOfFuel
  | S f =>
    if 1 <? size then
      let half_size := size / 2 in
      let mid_index := wrap32 (index + half_size) in
      x ← read b mid_index;
      comparison ← cmp x;
      search_loop f cmp b (if comparison <=? 0 then mid_index else index)
        (wrap32 (size - half_size))
    else Ret index
  end.

(** [_array__search_sorted]: the index and whether the needle exists. *)
Definition array_search_sorted (fuel : nat) self (start : Z) (cmp : A → res Z)
    : res (Z * bool) :=
  let size := wrap32 (size self - start) in
  if size =? 0 then Ret (start, false)
  else
    index ← search_loop fuel cmp (contents self) start size;
    x ← read (contents self) index;
    comparison ← cmp x;
    if comparison =? 0 then Ret (index, true)
    else if comparison <? 0 then Ret (wrap32 (index + 1), false)
    else Ret (index, false).

(** [compare(&x, needle)] with a comparison function. *)
Definition array_search_sorted_with (fuel : nat) self (compare : A → A → Z) (needle : A)
    : res (Z * bool) :=
  array_search_sorted fuel self 0 (λ x, Ret (compare x needle)).

(** The conversion [(int)x] of a key: the value modulo [2^32] in the range of
    [int], the definition compilers give where C leaves it open. *)
Definition to_int (x : Z) : Z := (x + 2 ^ 31) mod 2 ^ 32 - 2 ^ 31.

(** [_compare_int(a, b)]: both keys are converted, and the subtraction of the
    signed integers must not overflow. *)
Definition compare_int (a b : Z) : res Z :=
  let d := to_int a - to_int b in
  if (- 2 ^ 31 <=? d) && (d <? 2 ^ 31) then Ret d else OutOfBounds.

(** The needle is a value of the field. *)
Definition array_search_sorted_by (fuel : nat) self (field : A → Z) (needle : Z)
    : res (Z * bool) :=
  array_search_sorted fuel self 0 (λ x, compare_int (field x) needle).

(** The common body of the two insertion macros, after the search. *)
Definition insert_absent self (search : res (Z * bool)) (value : A) : res (Array A) :=
  '(index, exists_) ← search;
  if exists_ : bool then Ret self else array_insert self index value.

Definition array_insert_sorted_with (fuel : nat) self (compare : A → A → Z) (value : A)
    : res (Array A) :=
  insert_absent self (array_search_sorted_with fuel self compare value) value.

Definition array_insert_sorted_by (fuel : nat) self (field : A → Z) (value : A)
    : res (Array A) :=
  insert_absent self (array_search_sorted_by fuel self field (field value)) value.
End ops.
