(* ===== verification/DynArrayTheorems.v ===== *)
(** * The growable array refines lists

    The abstraction relation of [DynArray.v] and, for every operation, the
    proof that it computes the list operation it is named after and stays
    inside its block, provided the allocator grants what the operation asks
    for ([granted]), and what the operation does when the allocator refuses. *)

From S2P Require Import Prelude.
From S2P Require Import DynArray.

(** ** The abstraction relation *)

(** [b] holds the written cells [xs] first. *)
Definition holds {A} (b : option (block A)) (n : Z) (xs : list A) : Prop :=
  match b with
  | None => n = 0 ∧ xs = []
  | Some b => n = Z.of_nat (length b) ∧ ∃ junk, b = (Some <$> xs) ++ junk
  end.

Record repr {A} (a : Array A) (xs : list A) : Prop := {
  repr_size : size a = Z.of_nat (length xs);
  repr_capacity : 0 ≤ capacity a < 2 ^ 32;
  repr_holds : holds (contents a) (capacity a) xs;
}.

Lemma holds_le {A} (b : option (block A)) n xs : holds b n xs → Z.of_nat (length xs) ≤ n.
Proof.
  destruct b as [b|]; simpl.
  - intros [-> (junk & ->)]. rewrite length_app, length_fmap. lia.
  - by intros [-> ->].
Qed.

Lemma repr_le {A} (a : Array A) xs : repr a xs → 0 ≤ size a ≤ capacity a.
Proof. intros [-> ? Hh]. apply holds_le in Hh. lia. Qed.

Section memory.
Context {A : Type}.
Implicit Types (xs ys zs : list A) (b : block A).

(** The cells [xs] at position [i] of a block. *)
Lemma load_ok (pre cells post : block A) i n :
  i = Z.of_nat (length pre) → n = Z.of_nat (length cells) →
  load (Some (pre ++ cells ++ post)) i n = Ret cells.
Proof.
  intros -> ->. unfold load. destruct cells as [|c cells]; [done|].
  replace (Z.of_nat (length (c :: cells)) =? 0) with false by (simpl; lia).
  rewrite !length_app. simpl length.
  replace (_ && _ && _) with true by lia.
  rewrite !Nat2Z.id, drop_app_length. f_equal.
  change (S (length cells)) with (length (c :: cells)). apply take_app_length.
Qed.

Lemma store_ok (pre old post cells : block A) i :
  i = Z.of_nat (length pre) → length old = length cells →
  store (Some (pre ++ old ++ post)) i cells = Ret (Some (pre ++ cells ++ post)).
Proof.
  intros -> Hl. unfold store. destruct cells as [|c cells].
  { destruct old; [done|simpl in Hl; lia]. }
  rewrite !length_app, Hl.
  replace (_ && _) with true by lia.
  rewrite Nat2Z.id, take_app_length, <- Hl.
  rewrite <- drop_drop, drop_app_length, drop_app_length. done.
Qed.

Lemma store_raw b cells (i : nat) :
  (i + length cells ≤ length b)%nat →
  store (Some b) (Z.of_nat i) cells
  = Ret (Some (take i b ++ cells ++ drop (i + length cells) b)).
Proof.
  intros Hl. unfold store. destruct cells as [|c cells].
  { simpl. by rewrite Nat.add_0_r, take_drop. }
  replace (_ && _) with true by lia. by rewrite Nat2Z.id.
Qed.

Lemma load_holds bo n xs (i k : nat) :
  holds bo n xs → (i + k ≤ length xs)%nat →
  load bo (Z.of_nat i) (Z.of_nat k) = Ret (Some <$> take k (drop i xs)).
Proof.
  destruct bo as [b|]; simpl; cycle 1.
  { intros [_ ->]. simpl. intros. assert (k = 0%nat) as -> by lia. done. }
  intros [_ (junk & ->)] Hk.
  assert ((Some <$> xs) ++ junk = (Some <$> take i xs) ++ (Some <$> take k (drop i xs))
    ++ (Some <$> drop k (drop i xs)) ++ junk) as ->.
  { rewrite <- (take_drop i xs) at 1. rewrite <- (take_drop k (drop i xs)) at 1.
    by rewrite !fmap_app, <- !(assoc_L (++)). }
  apply load_ok; rewrite length_fmap, length_take, ?length_drop; lia.
Qed.

(** The cells of a spliced block: the tail is moved, then the new elements
    are written over the gap. *)
Lemma splice_cells xs ys junk (i o : nat) :
  let b : block A := (Some <$> xs) ++ junk in
  let k := length ys in
  (i + o ≤ length xs)%nat → (length xs + k ≤ length b + o)%nat →
  ∃ b1 junk',
    (if (i + o <? length xs)%nat
     then memmove (Some b) (Z.of_nat (i + k)) (Z.of_nat (i + o))
            (Z.of_nat (length xs - (i + o)))
     else Ret (Some b)) = Ret (Some b1)
    ∧ store (Some b1) (Z.of_nat i) (Some <$> ys)
      = Ret (Some ((Some <$> (take i xs ++ ys ++ drop (i + o) xs)) ++ junk'))
    ∧ length ((Some <$> (take i xs ++ ys ++ drop (i + o) xs)) ++ junk') = length b.
Proof.
  intros b k Hi Hk.
  assert (length b = length xs + length junk)%nat as Hb
    by (unfold b; by rewrite length_app, length_fmap).
  set (zs := drop (i + o) xs).
  assert (length zs = (length xs - (i + o))%nat) as Hz by (unfold zs; apply length_drop).
  assert (holds (Some b) (Z.of_nat (length b)) xs) as Hh by (split; [done|by exists junk]).
  assert ((if (i + o <? length xs)%nat
     then memmove (Some b) (Z.of_nat (i + k)) (Z.of_nat (i + o)) (Z.of_nat (length xs - (i + o)))
     else Ret (Some b))
    = Ret (Some (take (i + k) b ++ (Some <$> zs) ++ drop (i + k + length zs) b))) as ->.
  { destruct (Nat.ltb_spec (i + o) (length xs)) as [Hlt|Hge].
    - unfold memmove. rewrite (load_holds _ _ _ _ _ Hh) by lia.
      rewrite res_bind_ret. fold zs. rewrite (take_ge zs) by lia.
      rewrite store_raw; rewrite length_fmap; [done|lia].
    - assert (zs = []) as -> by (apply nil_length_inv; lia). simpl.
      by rewrite Nat.add_0_r, take_drop. }
  eexists _, _. split; [done|]. split.
  - rewrite store_raw.
    2:{ rewrite !length_app, !length_fmap, length_take, length_drop. lia. }
    rewrite length_fmap, take_app_le by (rewrite length_take; lia).
    rewrite take_take, Nat.min_l by lia.
    rewrite (drop_app_length' (take (i + k) b)) by (rewrite length_take; lia).
    unfold b at 1. rewrite take_app_le by (rewrite length_fmap; lia).
    rewrite <- fmap_take, !fmap_app, <- !(assoc_L (++)). done.
  - rewrite !length_app, !length_fmap, !length_app, length_take, length_drop, Hz. fold k. lia.
Qed.

Lemma read_ok xs junk i x :
  xs !! i = Some x → read (Some ((Some <$> xs) ++ junk)) (Z.of_nat i) = Ret x.
Proof.
  intros Hx. unfold read. pose proof (take_drop_middle _ _ _ Hx) as Hm.
  rewrite <- Hm at 1. rewrite fmap_app, fmap_cons, <- (assoc_L (++)).
  change (Some x :: (Some <$> drop (S i) xs)) with ([Some x] ++ (Some <$> drop (S i) xs)).
  rewrite <- (assoc_L (++)). rewrite load_ok; [done| |done].
  rewrite length_fmap, length_take. apply lookup_lt_Some in Hx. lia.
Qed.

Lemma read_holds bo n xs i x :
  holds bo n xs → xs !! i = Some x → read bo (Z.of_nat i) = Ret x.
Proof.
  destruct bo as [b|]; simpl.
  - intros [_ (junk & ->)]. apply read_ok.
  - by intros [_ ->].
Qed.
End memory.

Section ops.
Context {A : Type} (zero : A) (alloc_ok : Z → bool).
Implicit Types (xs ys : list A) (self a : Array A).

Lemma array_new_repr : repr (array_new (A:=A)) [].
Proof. split; simpl; [done|lia|done]. Qed.

Lemma array_get_repr self xs i x :
  repr self xs → xs !! i = Some x → array_get self (Z.of_nat i) = Ret x.
Proof.
  intros Hr Hx. pose proof (repr_le _ _ Hr). destruct Hr as [Hs Hc Hh].
  pose proof (lookup_lt_Some _ _ _ Hx). unfold array_get.
  rewrite wrap32_small by lia. replace (_ <? _) with true by lia.
  by eapply read_holds.
Qed.

Lemma array_clear_repr self xs : repr self xs → repr (array_clear self) [].
Proof.
  intros [Hs Hc Hh]. split; [done|done|]. simpl. destruct (contents self) as [b|]; simpl in *.
  - destruct Hh as [-> _]. eauto.
  - by destruct Hh as [-> _].
Qed.

Lemma array_delete_repr self xs :
  repr self xs → repr (array_delete self) [] ∧ contents (array_delete self) = None.
Proof.
  intros [Hs Hc Hh]. unfold array_delete. destruct (contents self) eqn:E; simpl in *.
  - split; [apply array_new_repr|done].
  - destruct Hh as [Hz ->]. split; [split; [done|done|by rewrite E]|done].
Qed.

(** Reserving keeps the elements and provides the capacity. *)
Lemma array_reserve_repr self xs n :
  repr self xs → n < 2 ^ 32 → (capacity self < n → alloc_ok n = true) →
  repr (array_reserve alloc_ok self n) xs
  ∧ capacity (array_reserve alloc_ok self n) = Z.max (capacity self) n.
Proof.
  intros Hr Hn Ha. pose proof (repr_le _ _ Hr). destruct Hr as [Hs Hc Hh].
  unfold array_reserve. destruct (Z.ltb_spec (capacity self) n) as [Hlt|Hge]; cycle 1.
  { split; [by split|lia]. }
  specialize (Ha Hlt). simpl. split; [|lia]. split; simpl; [done|lia|].
  destruct (contents self) as [b|]; simpl in *.
  - unfold ts_realloc. rewrite Ha. destruct Hh as [Hcap (junk & ->)]. simpl.
    rewrite take_ge by lia. split.
    + rewrite (length_app _ (replicate _ _)), length_replicate. lia.
    + eexists. by rewrite <- (assoc_L (++)).
  - unfold ts_malloc. rewrite Ha. destruct Hh as [_ ->]. simpl.
    split; [rewrite length_replicate; lia|]. by eexists.
Qed.

(** The capacity after growing. *)
Definition grown_capacity (cap new_size : Z) : Z :=
  if cap <? new_size then Z.max (Z.max (wrap32 (cap * 2)) 8) new_size else cap.

(** The number of elements that reserving [n] elements, or growing by [count]
    of them, asks the allocator for, if it asks at all. *)
Definition reserve_request self (n : Z) : option Z :=
  if capacity self <? n then Some n else None.

Definition grow_request self (count : Z) : option Z :=
  if capacity self <? size self + count
  then Some (grown_capacity (capacity self) (size self + count)) else None.

(** The allocator gives what is asked for. *)
Definition granted (request : option Z) : Prop :=
  match request with Some n => alloc_ok n = true | None => True end.

#[global] Instance granted_dec request : Decision (granted request).
Proof. destruct request; simpl; apply _. Defined.

Lemma granted_reserve self n :
  negb (bool_decide (granted (reserve_request self n)))
  = (capacity self <? n) && negb (alloc_ok n).
Proof.
  unfold reserve_request. destruct (capacity self <? n); simpl; [|done].
  by destruct (alloc_ok n).
Qed.

Lemma reserve_granted self n :
  granted (reserve_request self n) → capacity self < n → alloc_ok n = true.
Proof. unfold reserve_request. destruct (Z.ltb_spec (capacity self) n); [done|lia]. Qed.

Lemma array_grow_repr self xs count :
  repr self xs → 0 ≤ count → Z.of_nat (length xs) + count < 2 ^ 32 →
  granted (grow_request self count) →
  repr (array_grow alloc_ok self count) xs
  ∧ size self + count ≤ capacity (array_grow alloc_ok self count)
  ∧ size (array_grow alloc_ok self count) = size self
  ∧ capacity (array_grow alloc_ok self count)
    = grown_capacity (capacity self) (size self + count).
Proof.
  intros Hr Hc Hlt Ha. pose proof (repr_le _ _ Hr) as Hle. pose proof (repr_size _ _ Hr) as Hs.
  pose proof (repr_capacity _ _ Hr) as Hcap.
  unfold array_grow, grown_capacity. rewrite (wrap32_small (size self + count)) by lia.
  destruct (Z.ltb_spec (capacity self) (size self + count)) as [Hg|Hg]; cycle 1.
  { split_and!; [done|lia|done|done]. }
  assert (0 ≤ wrap32 (capacity self * 2) < 2 ^ 32) as Hw by (apply Z.mod_pos_bound; lia).
  set (w := wrap32 _) in *.
  set (n := if (if w <? 8 then 8 else w) <? size self + count then _ else _).
  assert (n = Z.max (Z.max w 8) (size self + count)) as Hn.
  { unfold n. clear -Hw. destruct (Z.ltb_spec w 8); case_match; lia. }
  assert (alloc_ok n = true) as Hok.
  { unfold granted, grow_request, grown_capacity in Ha.
    replace (capacity self <? _) with true in Ha by lia. by rewrite Hn. }
  destruct (array_reserve_repr self xs n Hr) as [Hr' Hcap']; [lia|done|].
  split_and!; [done|lia| |lia].
  rewrite (repr_size _ _ Hr'). lia.
Qed.

(** Writing elements over the cells from position [i] on; the rest of the
    elements is lost. *)
Lemma store_holds b n xs ys i :
  holds b n xs → (i ≤ length xs)%nat → Z.of_nat (i + length ys) ≤ n →
  ∃ b', store b (Z.of_nat i) (Some <$> ys) = Ret b' ∧ holds b' n (take i xs ++ ys)
    ∧ (∀ j, (i + length ys ≤ j)%nat → drop j <$> b' = drop j <$> b).
Proof.
  intros Hh Hi Hn. destruct b as [b|]; simpl in Hh.
  - destruct Hh as [Hb (junk & ->)]. rewrite length_app, length_fmap in Hb.
    set (pre := Some <$> take i xs). set (post := drop (length ys) ((Some <$> drop i xs) ++ junk)).
    assert ((Some <$> xs) ++ junk
      = pre ++ take (length ys) ((Some <$> drop i xs) ++ junk) ++ post) as ->.
    { unfold pre, post. rewrite take_drop, (assoc_L (++)), <- fmap_app. by rewrite take_drop. }
    assert (length pre = i) as Hpre by (unfold pre; rewrite length_fmap, length_take; lia).
    eexists. split_and!.
    + apply store_ok; [by rewrite Hpre|].
      rewrite length_take, length_app, !length_fmap, length_drop. lia.
    + simpl. split.
      * unfold post. rewrite !length_app, length_fmap, length_drop, length_app, length_fmap,
          length_drop, Hpre. lia.
      * exists post. unfold pre. by rewrite fmap_app, (assoc_L (++)).
    + intros j Hj. simpl. f_equal. rewrite !(assoc_L (++)), !drop_app.
      rewrite !length_app, length_fmap, Hpre, length_take, length_app, length_fmap, length_drop.
      replace (length ys `min` (length xs - i + length junk))%nat with (length ys) by lia.
      rewrite (drop_ge pre), (drop_ge (Some <$> ys)), (drop_ge (take _ _)); [done|..];
        rewrite ?length_fmap, ?length_take, ?length_app, ?length_fmap, ?length_drop; lia.
  - destruct Hh as [-> ->]. simpl in *.
    destruct ys; [|simpl in *; lia]. exists None. split_and!; [done|by destruct i|done].
Qed.

(** Appending elements within the capacity. *)
Lemma store_append b n xs ys :
  holds b n xs → Z.of_nat (length xs + length ys) ≤ n →
  ∃ b', store b (Z.of_nat (length xs)) (Some <$> ys) = Ret b' ∧ holds b' n (xs ++ ys).
Proof.
  intros Hh Hn. destruct (store_holds b n xs ys (length xs)) as (b' & ? & Hb & _); [done..|].
  rewrite firstn_all in Hb. eauto.
Qed.

Lemma repr_intro b n xs k :
  holds b n xs → k = Z.of_nat (length xs) → 0 ≤ n < 2 ^ 32 → repr (MkArray b k n) xs.
Proof. intros. by split. Qed.

Lemma array_push_repr self xs x :
  repr self xs → Z.of_nat (length xs) + 1 < 2 ^ 32 → granted (grow_request self 1) →
  ∃ a, array_push alloc_ok self x = Ret a ∧ repr a (xs ++ [x])
    ∧ capacity a = grown_capacity (capacity self) (size self + 1).
Proof.
  intros Hr Hlt Hg0. destruct (array_grow_repr self xs 1 Hr) as (Hr' & Hcap & Hsz & Hg);
    [lia|lia|done|].
  pose proof (repr_size _ _ Hr). unfold array_push.
  set (g := array_grow alloc_ok self 1) in *.
  destruct (store_append (contents g) (capacity g) xs [x]) as (b & Hst & Hb).
  { by apply repr_holds. } { simpl. lia. }
  rewrite Hsz, (repr_size _ _ Hr). rewrite fmap_cons in Hst. simpl in Hst.
  rewrite Hst, res_bind_ret. eexists. split_and!; [done| |simpl; by rewrite Hg, (repr_size _ _ Hr)].
  apply repr_intro; [done| |by apply (repr_capacity _ _ Hr')].
  rewrite length_app, wrap32_small; simpl; lia.
Qed.

Lemma array_grow_by_repr self xs count :
  repr self xs → 0 ≤ count → Z.of_nat (length xs) + count < 2 ^ 32 →
  granted (grow_request self count) →
  ∃ a, array_grow_by zero alloc_ok self count = Ret a
    ∧ repr a (xs ++ replicate (Z.to_nat count) zero).
Proof.
  intros Hr Hc Hlt Hg0. unfold array_grow_by. destruct (Z.eqb_spec count 0) as [->|Hne].
  { exists self. by rewrite app_nil_r. }
  destruct (array_grow_repr self xs count Hr) as (Hr' & Hcap & Hsz & _); [lia|lia|done|].
  pose proof (repr_size _ _ Hr). set (g := array_grow alloc_ok self count) in *.
  destruct (store_append (contents g) (capacity g) xs (replicate (Z.to_nat count) zero))
    as (b & Hst & Hb).
  { by apply repr_holds. } { rewrite length_replicate. lia. }
  rewrite fmap_replicate in Hst.
  rewrite Hsz, (repr_size _ _ Hr), Hst, res_bind_ret. eexists. split; [done|].
  apply repr_intro; [done| |by apply (repr_capacity _ _ Hr')].
  rewrite length_app, length_replicate, wrap32_small; lia.
Qed.

Lemma array_pop_repr self xs x :
  repr self (xs ++ [x]) → ∃ a, array_pop self = Ret (x, a) ∧ repr a xs.
Proof.
  intros Hr. pose proof (repr_le _ _ Hr). destruct Hr as [Hs Hc Hh].
  rewrite length_app in Hs. simpl in Hs. unfold array_pop.
  rewrite wrap32_small by lia. replace (size self - 1) with (Z.of_nat (length xs)) by lia.
  rewrite (read_holds _ _ _ _ x Hh), res_bind_ret.
  2:{ by rewrite lookup_app_r, Nat.sub_diag. }
  eexists. split; [done|]. apply repr_intro; [|done|done].
  destruct (contents self) as [b|]; simpl in *.
  - destruct Hh as [-> (junk & ->)]. split; [done|]. exists ([Some x] ++ junk).
    by rewrite fmap_app, <- (assoc_L (++)).
  - destruct Hh as [_ Hnil]. by destruct xs.
Qed.

(** The second half of a splice: the new elements are read or zeroed. *)
Lemma splice_write b ys elements (i : nat) :
  elements = Some ys ∨ elements = None ∧ ys = replicate (length ys) zero →
  (if 0 <? Z.of_nat (length ys) then
     match elements with
     | Some xs =>
       ys ← load (Some (Some <$> xs)) 0 (Z.of_nat (length ys)); store b (Z.of_nat i) ys
     | None => store b (Z.of_nat i) (replicate (Z.to_nat (Z.of_nat (length ys))) (Some zero))
     end
   else Ret b) = store b (Z.of_nat i) (Some <$> ys).
Proof.
  intros He. destruct (Z.ltb_spec 0 (Z.of_nat (length ys))) as [Hk|Hk]; cycle 1.
  { assert (ys = []) as -> by (apply nil_length_inv; lia). done. }
  destruct He as [->|[-> Hz]].
  - pose proof (load_ok [] (Some <$> ys) [] 0 (Z.of_nat (length ys)) eq_refl) as Hl.
    rewrite app_nil_l, app_nil_r in Hl. by rewrite Hl by (by rewrite length_fmap).
  - rewrite Nat2Z.id. rewrite Hz at 2. by rewrite fmap_replicate.
Qed.

(** Splicing replaces the [o] elements from index [i] on by [ys]. *)
Lemma array_splice_repr self xs (i o : nat) ys elements :
  repr self xs → (i + o ≤ length xs)%nat →
  Z.of_nat (length xs + length ys) - Z.of_nat o < 2 ^ 32 →
  elements = Some ys ∨ elements = None ∧ ys = replicate (length ys) zero →
  granted (reserve_request self (size self + Z.of_nat (length ys) - Z.of_nat o)) →
  ∃ a, array_splice zero alloc_ok self (Z.of_nat i) (Z.of_nat o) (Z.of_nat (length ys))
         elements = Ret a
    ∧ repr a (take i xs ++ ys ++ drop (i + o) xs).
Proof.
  intros Hr Hi Hlt He Hg0. pose proof (repr_le _ _ Hr) as Hle.
  pose proof (repr_size _ _ Hr) as Hs. pose proof (repr_capacity _ _ Hr) as Hc.
  set (k := length ys) in *. unfold array_splice.
  set (new_size := (length xs + k - o)%nat).
  rewrite (wrap32_small (Z.of_nat i + Z.of_nat o)) by lia.
  rewrite (wrap32_small (Z.of_nat i + Z.of_nat k)) by lia.
  rewrite (wrap32_small (size self + Z.of_nat k - Z.of_nat o)) by lia.
  replace (size self + Z.of_nat k - Z.of_nat o) with (Z.of_nat new_size) in * by lia.
  replace (Z.of_nat i + Z.of_nat o <=? size self) with true by lia. simpl negb. cbn iota.
  destruct (array_reserve_repr self xs (Z.of_nat new_size) Hr)
    as [Hr' Hcap]; [lia|by apply reserve_granted|].
  set (r := array_reserve alloc_ok self (Z.of_nat new_size)) in *.
  rewrite (repr_size _ _ Hr').
  assert (wrap32 (Z.of_nat (length xs) + wrap32 (Z.of_nat k - Z.of_nat o))
    = Z.of_nat new_size) as ->.
  { unfold wrap32. rewrite Z.add_mod_idemp_r by lia. rewrite Z.mod_small; lia. }
  replace (Z.of_nat i + Z.of_nat o <? Z.of_nat (length xs))
    with (i + o <? length xs)%nat by lia.
  rewrite (wrap32_small (Z.of_nat (length xs) - _)) by lia.
  pose proof (repr_holds _ _ Hr') as Hh.
  assert (length (take i xs ++ ys ++ drop (i + o) xs) = new_size) as Hlen.
  { rewrite !length_app, length_take, length_drop. fold k. lia. }
  destruct (contents r) as [blk|]; simpl in Hh.
  - destruct Hh as [Hblk (junk & ->)].
    destruct (splice_cells xs ys junk i o) as (b1 & junk' & Hm & Hst & Hl); [done|fold k; lia|].
    fold k in Hm. rewrite <- (Nat2Z.inj_add i k), <- (Nat2Z.inj_add i o).
    replace (Z.of_nat (length xs) - Z.of_nat (i + o)) with (Z.of_nat (length xs - (i + o)))
      by lia.
    rewrite Hm, res_bind_ret. unfold k. rewrite splice_write, Hst, res_bind_ret by done.
    eexists. split; [done|]. apply repr_intro; [|by rewrite Hlen|by apply (repr_capacity _ _ Hr')].
    split; [by rewrite Hl|by eexists].
  - destruct Hh as [Hz ->]. simpl in *. assert (i = 0%nat ∧ o = 0%nat ∧ k = 0%nat) as (-> & -> & Hk)
      by lia.
    assert (ys = []) as Hys by (by apply nil_length_inv).
    unfold k. rewrite splice_write, Hys by done. eexists. split; [done|]. apply repr_intro; [by split| |].
    + simpl. lia.
    + by apply (repr_capacity _ _ Hr').
Qed.

Lemma array_insert_repr self xs (i : nat) x :
  repr self xs → (i ≤ length xs)%nat → Z.of_nat (length xs) + 1 < 2 ^ 32 →
  granted (reserve_request self (size self + 1)) →
  ∃ a, array_insert zero alloc_ok self (Z.of_nat i) x = Ret a
    ∧ repr a (take i xs ++ x :: drop i xs).
Proof.
  intros Hr Hi Hlt Hg.
  destruct (array_splice_repr self xs i 0 [x] (Some [x]) Hr) as (a & ? & Ha);
    [lia|simpl; lia|by left|by rewrite Z.sub_0_r|].
  exists a. rewrite Nat.add_0_r in Ha. done.
Qed.

Lemma array_push_all_repr self other xs ys :
  repr self xs → repr other ys → Z.of_nat (length xs + length ys) < 2 ^ 32 →
  granted (reserve_request self (size self + size other)) →
  ∃ a, array_push_all zero alloc_ok self other = Ret a ∧ repr a (xs ++ ys).
Proof.
  intros Hr Ho Hlt Hg. rewrite (repr_size _ _ Ho) in Hg. unfold array_push_all.
  pose proof (load_holds _ _ _ 0 (length ys) (repr_holds _ _ Ho) ltac:(lia)) as Hld.
  rewrite drop_0, firstn_all in Hld. rewrite (repr_size _ _ Ho).
  change (Z.of_nat 0) with 0 in Hld. rewrite Hld, res_bind_ret.
  assert (mapM id (Some <$> ys) = Some ys) as ->.
  { apply mapM_Some, Forall2_fmap_l, Forall_Forall2_diag, Forall_forall. done. }
  unfold array_extend. rewrite (repr_size _ _ Hr).
  destruct (array_splice_repr self xs (length xs) 0 ys (Some ys) Hr) as (a & Hs & Ha);
    [lia|lia|by left|by rewrite Z.sub_0_r|].
  exists a. split; [done|]. by rewrite Nat.add_0_r, firstn_all, drop_all, app_nil_r in Ha.
Qed.

Lemma array_erase_repr self xs (i : nat) :
  repr self xs → (i < length xs)%nat →
  ∃ a, array_erase self (Z.of_nat i) = Ret a ∧ repr a (take i xs ++ drop (S i) xs).
Proof.
  intros Hr Hi. pose proof (repr_le _ _ Hr). destruct Hr as [Hs Hc Hh].
  unfold array_erase. replace (Z.of_nat i <? size self) with true by lia. simpl negb. cbn iota.
  rewrite Hs, !wrap32_small by lia.
  destruct (contents self) as [b|]; simpl in Hh; [|destruct Hh as [_ ->]; simpl in *; lia].
  destruct Hh as [Hcap (junk & ->)].
  destruct (splice_cells xs [] junk i 1) as (b1 & junk' & Hm & Hst & Hl);
    [lia|rewrite length_app, length_fmap; simpl; lia|].
  assert (memmove (Some ((Some <$> xs) ++ junk)) (Z.of_nat i) (Z.of_nat i + 1)
    (Z.of_nat (length xs) - Z.of_nat i - 1) = Ret (Some b1)) as ->.
  { rewrite <- Hm. simpl length. rewrite Nat.add_0_r.
    replace (Z.of_nat i + 1) with (Z.of_nat (i + 1)) by lia.
    replace (Z.of_nat (length xs) - Z.of_nat i - 1)
      with (Z.of_nat (length xs - (i + 1))) by lia.
    destruct (Nat.ltb_spec (i + 1) (length xs)); [done|].
    replace (length xs - (i + 1))%nat with 0%nat by lia. done. }
  rewrite res_bind_ret. eexists. split; [done|]. simpl in Hst. unfold store in Hst.
  simplify_eq. replace (S i) with (i + 1)%nat by lia.
  apply repr_intro; [|rewrite length_app, length_take, length_drop; lia|done].
  split; [rewrite Hcap; f_equal; by symmetry|by eexists].
Qed.

Lemma array_assign_repr self other xs ys :
  repr self xs → repr other ys → granted (reserve_request self (size other)) →
  ∃ a, array_assign alloc_ok self other = Ret a ∧ repr a ys.
Proof.
  intros Hr Ho Hg. pose proof (repr_le _ _ Ho). pose proof (repr_capacity _ _ Ho).
  unfold array_assign.
  destruct (array_reserve_repr self xs (size other) Hr) as [Hr' Hcap];
    [lia|by apply reserve_granted|].
  set (r := array_reserve alloc_ok self (size other)) in *.
  pose proof (repr_size _ _ Ho) as Hs.
  assert (load (contents other) 0 (size other) = Ret (Some <$> ys)) as ->.
  { pose proof (load_holds _ _ _ 0 (length ys) (repr_holds _ _ Ho) ltac:(lia)) as Hld.
    rewrite drop_0, firstn_all in Hld. by rewrite Hs. }
  rewrite res_bind_ret.
  destruct (store_holds (contents r) (capacity r) xs ys 0) as (b & Hst & Hb & _);
    [by apply repr_holds|lia|lia|].
  change (Z.of_nat 0) with 0 in Hst. rewrite Hst, res_bind_ret. eexists. split; [done|].
  apply repr_intro; [done|done|by apply (repr_capacity _ _ Hr')].
Qed.

(** ** Refused requests *)

(** The null pointer of a failed allocation becomes the array's block, with
    the capacity that was asked for. *)
Lemma array_reserve_refused self n :
  capacity self < n → alloc_ok n = false →
  array_reserve alloc_ok self n = MkArray None (size self) n.
Proof.
  intros Hn Ha. unfold array_reserve, ts_realloc, ts_malloc.
  replace (capacity self <? n) with true by lia. rewrite Ha. by destruct (contents self).
Qed.

Lemma array_grow_refused self xs count n :
  repr self xs → 0 ≤ count → Z.of_nat (length xs) + count < 2 ^ 32 →
  grow_request self count = Some n → alloc_ok n = false →
  array_grow alloc_ok self count = MkArray None (size self) n.
Proof.
  intros Hr Hc Hlt Hn Ha. pose proof (repr_size _ _ Hr). pose proof (repr_le _ _ Hr).
  unfold grow_request, grown_capacity in Hn. unfold array_grow.
  rewrite (wrap32_small (size self + count)) by lia.
  destruct (Z.ltb_spec (capacity self) (size self + count)) as [Hg|]; [|done].
  set (w := wrap32 (capacity self * 2)) in *. simplify_eq.
  set (m := if _ <? size self + count then _ else _).
  assert (m = Z.max (Z.max w 8) (size self + count)) as ->.
  { unfold m. destruct (Z.ltb_spec w 8); case_match; lia. }
  apply array_reserve_refused; [lia|done].
Qed.

Lemma store_null i (cells : block A) : cells ≠ [] → store None i cells = OutOfBounds.
Proof. by destruct cells. Qed.

Lemma array_push_refused self xs x n :
  repr self xs → Z.of_nat (length xs) + 1 < 2 ^ 32 →
  grow_request self 1 = Some n → alloc_ok n = false →
  array_push alloc_ok self x = OutOfBounds.
Proof.
  intros Hr Hlt Hn Ha. unfold array_push.
  by rewrite (array_grow_refused self xs 1 n).
Qed.

Lemma array_grow_by_refused self xs count n :
  repr self xs → 0 < count → Z.of_nat (length xs) + count < 2 ^ 32 →
  grow_request self count = Some n → alloc_ok n = false →
  array_grow_by zero alloc_ok self count = OutOfBounds.
Proof.
  intros Hr Hc Hlt Hn Ha. unfold array_grow_by. replace (count =? 0) with false by lia.
  rewrite (array_grow_refused self xs count n) by (done || lia). cbn zeta. simpl contents.
  rewrite store_null; [done|]. by destruct (Z.to_nat count) eqn:?; [lia|].
Qed.

Lemma array_splice_refused self xs (i o : nat) ys n :
  repr self xs → (i + o ≤ length xs)%nat →
  Z.of_nat (length xs + length ys) - Z.of_nat o < 2 ^ 32 →
  reserve_request self (size self + Z.of_nat (length ys) - Z.of_nat o) = Some n →
  alloc_ok n = false →
  array_splice zero alloc_ok self (Z.of_nat i) (Z.of_nat o) (Z.of_nat (length ys)) (Some ys)
  = OutOfBounds.
Proof.
  intros Hr Hi Hlt Hn Ha. pose proof (repr_size _ _ Hr) as Hs. pose proof (repr_le _ _ Hr).
  unfold reserve_request in Hn.
  destruct (Z.ltb_spec (capacity self) (size self + Z.of_nat (length ys) - Z.of_nat o))
    as [Hg|]; [|done]. injection Hn as Hn.
  unfold array_splice.
  rewrite (wrap32_small (Z.of_nat i + Z.of_nat o)) by lia.
  rewrite (wrap32_small (size self + _ - _)), Hn by lia.
  replace (_ <=? size self) with true by lia. simpl negb. cbn iota zeta.
  rewrite array_reserve_refused by (done || lia). simpl.
  destruct (Z.ltb_spec (Z.of_nat i + Z.of_nat o) (size self)) as [Hm|Hm].
  - unfold memmove, load. replace (wrap32 _ =? 0) with false; [done|].
    rewrite wrap32_small by lia. lia.
  - rewrite res_bind_ret.
    rewrite (splice_write None ys (Some ys) i) by (by left).
    destruct ys; [simpl in *; lia|done].
Qed.

(** ** Binary search *)

(** [c] orders the elements: first those below the needle, then at most those
    equal to it, then those above. *)
Definition monotone (c : A → Z) xs : Prop :=
  ∀ i j x y, xs !! i = Some x → xs !! j = Some y → (i < j)%nat →
    (c y ≤ 0 → c x ≤ 0) ∧ (c y < 0 → c x < 0).

(** The loop ends at the last element not above the needle, or at the
    start. *)
Lemma search_loop_spec fuel cmp c b n xs (i k : nat) :
  holds b n xs → Z.of_nat (length xs) < 2 ^ 32 →
  (∀ x, x ∈ xs → cmp x = Ret (c x)) → monotone c xs →
  (0 < k)%nat → (i + k ≤ length xs)%nat → (k ≤ fuel)%nat →
  ∃ m, search_loop fuel cmp b (Z.of_nat i) (Z.of_nat k) = Ret (Z.of_nat m)
    ∧ (i ≤ m < i + k)%nat
    ∧ (m = i ∨ ∃ x, xs !! m = Some x ∧ c x ≤ 0)
    ∧ ∀ j y, xs !! j = Some y → (m < j < i + k)%nat → 0 < c y.
Proof.
  intros Hh Hlen Hcmp Hmon. revert i k.
  induction fuel as [|f IH]; intros i k Hk Hik Hf; [lia|]. cbn [search_loop].
  destruct (Z.ltb_spec 1 (Z.of_nat k)) as [H1|H1]; cycle 1.
  { exists i. split_and!; [done|lia|lia|by left|]. intros. lia. }
  set (h := (k / 2)%nat).
  assert (0 < h < k ∧ h + h ≤ k)%nat as Hhk.
  { pose proof (Nat.div_mod_eq k 2). pose proof (Nat.mod_upper_bound k 2).
    unfold h. clear -H1 H H0. lia. }
  replace (Z.of_nat k / 2) with (Z.of_nat h) by (unfold h; by rewrite Nat2Z.inj_div).
  rewrite <- Nat2Z.inj_add, wrap32_small by lia.
  destruct (lookup_lt_is_Some_2 xs (i + h)) as [x Hx]; [lia|].
  rewrite (read_holds _ _ _ _ _ Hh Hx), res_bind_ret.
  rewrite Hcmp by (by eapply list_elem_of_lookup_2). rewrite res_bind_ret.
  replace (Z.of_nat k - Z.of_nat h) with (Z.of_nat (k - h)) by lia.
  rewrite wrap32_small by lia. destruct (Z.leb_spec (c x) 0) as [Hc|Hc].
  - destruct (IH (i + h)%nat (k - h)%nat) as (m & -> & Hm & Hmx & Hgt); [lia..|].
    exists m. split_and!; [done|lia|lia| |].
    + right. destruct Hmx as [->|]; eauto.
    + intros j y Hy Hj. apply (Hgt j y Hy). lia.
  - destruct (IH i (k - h)%nat) as (m & -> & Hm & Hmx & Hgt); [lia..|].
    exists m. split_and!; [done|lia|lia|done|].
    intros j y Hy Hj. destruct (decide (j < i + (k - h))%nat) as [|Hge].
    + apply (Hgt j y Hy). lia.
    + destruct (decide (j = (i + h)%nat)) as [->|Hne]; [by simplify_eq|].
      destruct (Hmon (i + h)%nat j x y Hx Hy) as [Hm1 _]; [lia|].
      destruct (decide (c y ≤ 0)) as [Hy0%Hm1|]; lia.
Qed.

(** What [_array__search_sorted] promises: the index of an equal element, or
    the place that separates the smaller elements from the greater ones. *)
Definition found (c : A → Z) xs (m : nat) (ex : bool) : Prop :=
  if ex then ∃ x, xs !! m = Some x ∧ c x = 0
  else (m ≤ length xs)%nat ∧ Forall (λ x, c x < 0) (take m xs)
       ∧ Forall (λ x, 0 < c x) (drop m xs).

Lemma found_split c xs m :
  (m ≤ length xs)%nat →
  (∀ j y, xs !! j = Some y → (j < m)%nat → c y < 0) →
  (∀ j y, xs !! j = Some y → (m ≤ j)%nat → 0 < c y) → found c xs m false.
Proof.
  intros Hm Hlt Hgt. split_and!; [done|..]; apply Forall_lookup; intros j y.
  - rewrite lookup_take_Some. intros [? ?]. by eapply Hlt.
  - rewrite lookup_drop. intros Hy. apply (Hgt _ _ Hy). lia.
Qed.

Lemma array_search_sorted_repr fuel self xs cmp c :
  repr self xs → (∀ x, x ∈ xs → cmp x = Ret (c x)) → monotone c xs →
  (length xs ≤ fuel)%nat →
  ∃ m ex, array_search_sorted fuel self 0 cmp = Ret (Z.of_nat m, ex) ∧ found c xs m ex.
Proof.
  intros Hr Hcmp Hmon Hf. pose proof (repr_le _ _ Hr). destruct Hr as [Hs Hc Hh].
  unfold array_search_sorted. rewrite Z.sub_0_r, Hs, wrap32_small by lia.
  destruct (Z.eqb_spec (Z.of_nat (length xs)) 0) as [Hz|Hz].
  { exists 0%nat, false. split; [done|]. assert (xs = []) as -> by (apply nil_length_inv; lia).
    done. }
  destruct (search_loop_spec fuel cmp c (contents self) (capacity self) xs 0 (length xs))
    as (m & Hloop & Hm & Hmx & Hgt); [done|lia|done..|lia|lia|done|].
  change (Z.of_nat 0) with 0 in Hloop. rewrite Hloop, res_bind_ret.
  destruct (lookup_lt_is_Some_2 xs m) as [x Hx]; [lia|].
  rewrite (read_holds _ _ _ _ _ Hh Hx), res_bind_ret.
  rewrite Hcmp by (by eapply list_elem_of_lookup_2). rewrite res_bind_ret.
  assert (∀ j y, xs !! j = Some y → (m < j)%nat → 0 < c y) as Hafter.
  { intros j y Hy Hj. apply (Hgt j y Hy). apply lookup_lt_Some in Hy. lia. }
  destruct (Z.eqb_spec (c x) 0) as [H0|H0].
  { exists m, true. split; [done|]. exists x. done. }
  destruct (Z.ltb_spec (c x) 0) as [Hlt|Hge].
  - exists (S m), false. rewrite wrap32_small by lia.
    split; [do 2 f_equal; lia|]. apply found_split; [lia| |].
    + intros j y Hy Hj. destruct (decide (j = m)) as [->|]; [by simplify_eq|].
      destruct (Hmon j m y x Hy Hx) as [_ Hm2]; [lia|auto].
    + intros j y Hy Hj. apply (Hafter j y Hy). lia.
  - exists m, false. split; [done|]. destruct Hmx as [->|(x' & Hx' & ?)]; [|simplify_eq; lia].
    apply found_split; [lia|intros; lia|]. intros j y Hy Hj.
    destruct (decide (j = 0%nat)) as [->|]; [simplify_eq; lia|]. apply (Hafter j y Hy). lia.
Qed.

Lemma found_absent c xs m x : found c xs m false → x ∈ xs → c x ≠ 0.
Proof.
  intros (_ & Hl & Hg) Hx. rewrite Forall_forall in Hl, Hg.
  rewrite <- (take_drop m xs), elem_of_app in Hx.
  destruct Hx as [?%Hl|?%Hg]; simpl in *; lia.
Qed.

(** ** Insertion into a sorted array *)

(** A three-way comparison. *)
Class Comparison (compare : A → A → Z) := {
  compare_opp x y : compare x y < 0 ↔ 0 < compare y x;
  compare_trans x y z : compare x y < 0 → compare y z ≤ 0 → compare x z < 0;
}.

Definition sorted (compare : A → A → Z) xs : Prop :=
  ∀ i j x y, xs !! i = Some x → xs !! j = Some y → (i < j)%nat → compare x y < 0.

Lemma sorted_monotone compare xs v :
  Comparison compare → sorted compare xs → monotone (λ x, compare x v) xs.
Proof.
  intros Hcmp Hs i j x y Hx Hy Hij. specialize (Hs i j x y Hx Hy Hij). simpl.
  split; intros Hy0.
  - pose proof (compare_trans x y v Hs Hy0). lia.
  - apply (compare_trans x y v Hs). lia.
Qed.

Lemma sorted_insert compare xs v m :
  Comparison compare → sorted compare xs → found (λ x, compare x v) xs m false →
  sorted compare (take m xs ++ v :: drop m xs).
Proof.
  intros Hcmp Hs (Hm & Hlt & Hgt) i j x y Hx Hy Hij.
  rewrite Forall_forall in Hlt, Hgt.
  assert (length (take m xs) = m) as Hlen by (rewrite length_take; lia).
  assert (∀ k z, (take m xs ++ v :: drop m xs) !! k = Some z →
    (k < m)%nat ∧ xs !! k = Some z ∧ z ∈ take m xs ∨ k = m ∧ z = v
    ∨ (m < k)%nat ∧ xs !! (k - 1)%nat = Some z ∧ z ∈ drop m xs) as Hcase.
  { intros k z Hz. destruct (decide (k < m)%nat).
    - left. rewrite lookup_app_l in Hz by lia. split; [done|].
      split; [|by eapply list_elem_of_lookup_2]. apply lookup_take_Some in Hz. tauto.
    - right. rewrite lookup_app_r, Hlen in Hz by lia.
      destruct (k - m)%nat as [|d] eqn:Hd; simpl in Hz; [left; split; [lia|congruence]|].
      right. split; [lia|]. split; [|by eapply list_elem_of_lookup_2].
      rewrite lookup_drop in Hz. rewrite <- Hz. f_equal. lia. }
  destruct (Hcase i x Hx) as [(Hi & Hxi & Hxe)|[[-> ->]|(Hi & Hxi & Hxe)]];
    destruct (Hcase j y Hy) as [(Hj & Hyj & Hye)|[[-> ->]|(Hj & Hyj & Hye)]]; try lia.
  - by apply (Hs i j).
  - by apply Hlt.
  - apply (Hs i (j - 1)%nat); [done..|lia].
  - by apply compare_opp, Hgt.
  - apply (Hs (i - 1)%nat (j - 1)%nat); [done..|lia].
Qed.

Lemma insert_absent_repr fuel self xs cmp c v :
  repr self xs → (∀ x, x ∈ xs → cmp x = Ret (c x)) → monotone c xs →
  (length xs ≤ fuel)%nat → Z.of_nat (length xs) + 1 < 2 ^ 32 →
  let insertion := insert_absent zero alloc_ok self (array_search_sorted fuel self 0 cmp) v in
  (∃ x, x ∈ xs ∧ c x = 0) ∧ insertion = Ret self
  ∨ ∃ m, found c xs m false
    ∧ if decide (granted (reserve_request self (size self + 1)))
      then ∃ a, insertion = Ret a ∧ repr a (take m xs ++ v :: drop m xs)
      else insertion = OutOfBounds.
Proof.
  intros Hr Hcmp Hmon Hf Hlt.
  destruct (array_search_sorted_repr fuel self xs cmp c Hr Hcmp Hmon Hf) as (m & ex & Hse & Hfd).
  unfold insert_absent. rewrite Hse, res_bind_ret. destruct ex.
  - destruct Hfd as (x & Hx & H0). left.
    split; [|done]. exists x. split; [by eapply list_elem_of_lookup_2|done].
  - right. exists m. split; [done|]. pose proof Hfd as (Hm & _). case_decide as Hg.
    + by apply array_insert_repr.
    + unfold granted in Hg. destruct (reserve_request _ _) as [n|] eqn:Hn; [|done].
      apply (array_splice_refused self xs m 0 [v] n); simpl; [done|lia|lia| |].
      * by rewrite Z.sub_0_r.
      * by destruct (alloc_ok n).
Qed.

(** ** The operations on lists *)

(** The operations that change an array. *)
Inductive array_op :=
  | OpPush (x : A)
  | OpPop
  | OpSplice (index old_count : nat) (ys : list A)
  | OpErase (index : nat)
  | OpGrowBy (count : nat)
  | OpReserve (n : nat)
  | OpClear
  | OpDelete.

Definition exec_op (op : array_op) self : res (Array A) :=
  match op with
  | OpPush x => array_push alloc_ok self x
  | OpPop => '(_, a) ← array_pop self; Ret a
  | OpSplice i o ys =>
    array_splice zero alloc_ok self (Z.of_nat i) (Z.of_nat o) (Z.of_nat (length ys)) (Some ys)
  | OpErase i => array_erase self (Z.of_nat i)
  | OpGrowBy n => array_grow_by zero alloc_ok self (Z.of_nat n)
  | OpReserve n => Ret (array_reserve alloc_ok self (Z.of_nat n))
  | OpClear => Ret (array_clear self)
  | OpDelete => Ret (array_delete self)
  end.

(** The same on lists; [None] outside the operation's domain. *)
Definition list_op (op : array_op) xs : option (list A) :=
  let small (ys : list A) := if Z.of_nat (length ys) <? 2 ^ 32 then Some ys else None in
  match op with
  | OpPush x => small (xs ++ [x])
  | OpPop => if (0 <? length xs)%nat then Some (take (length xs - 1) xs) else None
  | OpSplice i o ys =>
    if (i + o <=? length xs)%nat then small (take i xs ++ ys ++ drop (i + o) xs) else None
  | OpErase i => if (i <? length xs)%nat then Some (take i xs ++ drop (S i) xs) else None
  | OpGrowBy n => small (xs ++ replicate n zero)
  | OpReserve n => if Z.of_nat n <? 2 ^ 32 then Some xs else None
  | OpClear | OpDelete => Some []
  end.

(** What an operation asks the allocator for. *)
Definition op_request (op : array_op) self : option Z :=
  match op with
  | OpPush _ => grow_request self 1
  | OpGrowBy n => if (n =? 0)%nat then None else grow_request self (Z.of_nat n)
  | OpSplice _ o ys => reserve_request self (size self + Z.of_nat (length ys) - Z.of_nat o)
  | OpReserve n => reserve_request self (Z.of_nat n)
  | OpPop | OpErase _ | OpClear | OpDelete => None
  end.

Lemma small_inv (ys zs : list A) :
  (if Z.of_nat (length ys) <? 2 ^ 32 then Some ys else None) = Some zs →
  zs = ys ∧ Z.of_nat (length ys) < 2 ^ 32.
Proof. destruct (Z.ltb_spec (Z.of_nat (length ys)) (2 ^ 32)); naive_solver. Qed.

Lemma exec_op_refines op self xs ys :
  repr self xs → list_op op xs = Some ys → granted (op_request op self) →
  ∃ a, exec_op op self = Ret a ∧ repr a ys.
Proof.
  intros Hr Hop Hg. revert Hop.
  destruct op as [x| |i o zs|i|n|n| |]; cbn [list_op exec_op op_request] in *; cbn zeta.
  - intros [-> Hl]%small_inv. rewrite length_app in Hl. simpl in Hl.
    destruct (array_push_repr self xs x Hr) as (a & ? & ? & _); [lia|done|eauto].
  - destruct (Nat.ltb_spec 0 (length xs)) as [Hl|Hl]; [|done]. intros [= <-].
    destruct (last xs) as [x|] eqn:Hx; cycle 1.
    { apply last_None in Hx. subst xs. simpl in Hl. lia. }
    apply last_Some in Hx as [xs' ->].
    destruct (array_pop_repr self xs' x Hr) as (a & Hp & Ha).
    rewrite Hp, res_bind_ret. exists a. split; [done|].
    rewrite length_app, Nat.add_sub. by rewrite take_app_length.
  - destruct (Nat.leb_spec (i + o) (length xs)) as [Hi|Hi]; [|done].
    intros [-> Hl]%small_inv. rewrite !length_app, length_take, length_drop in Hl.
    apply array_splice_repr; [done|done|lia|by left|done].
  - destruct (Nat.ltb_spec i (length xs)) as [Hi|Hi]; [|done]. intros [= <-].
    by apply array_erase_repr.
  - intros [-> Hl]%small_inv. rewrite length_app, length_replicate in Hl.
    destruct (Nat.eqb_spec n 0) as [->|Hn]; [exists self; by rewrite app_nil_r|].
    destruct (array_grow_by_repr self xs (Z.of_nat n) Hr) as (a & ? & Ha); [lia|lia|done|].
    rewrite Nat2Z.id in Ha. eauto.
  - destruct (Z.ltb_spec (Z.of_nat n) (2 ^ 32)) as [Hn|Hn]; [|done]. intros [= <-].
    destruct (array_reserve_repr self xs (Z.of_nat n) Hr Hn) as [? _];
      [by apply reserve_granted|eauto].
  - intros [= <-]. eexists. split; [done|]. by eapply array_clear_repr.
  - intros [= <-]. eexists. split; [done|]. by eapply array_delete_repr.
Qed.

(** C12. An allocation that fails is not noticed: when the allocator refuses
    the block that an operation needs, pushing, splicing and growing write
    through the null pointer, and reserving leaves an array that claims the
    capacity it asked for without having a block. *)
Theorem refused_request_unnoticed op self xs ys n :
  repr self xs → list_op op xs = Some ys →
  op_request op self = Some n → alloc_ok n = false →
  exec_op op self
  = match op with
    | OpReserve _ => Ret (MkArray None (size self) n)
    | _ => OutOfBounds
    end.
Proof.
  intros Hr Hop Hn Ha. revert Hop.
  destruct op as [x| |i o zs|i|k|k| |]; cbn [list_op exec_op op_request] in *; cbn zeta;
    try done.
  - intros [-> Hl]%small_inv. rewrite length_app in Hl. simpl in Hl.
    apply (array_push_refused self xs x n); [done|lia|done..].
  - destruct (Nat.leb_spec (i + o) (length xs)) as [Hi|Hi]; [|done].
    intros [-> Hl]%small_inv. rewrite !length_app, length_take, length_drop in Hl.
    apply (array_splice_refused self xs i o zs n); [done|done|lia|done..].
  - intros [-> Hl]%small_inv. rewrite length_app, length_replicate in Hl.
    destruct (Nat.eqb_spec k 0) as [|Hk]; [done|].
    apply (array_grow_by_refused self xs (Z.of_nat k) n); [done|lia|lia|done..].
  - intros _. unfold reserve_request in Hn.
    destruct (Z.ltb_spec (capacity self) (Z.of_nat k)); simplify_eq.
    by rewrite array_reserve_refused.
Qed.

(** Pushing an element and popping it gives the element back and leaves
    the array with its former elements; the capacity at least doubles when the
    block is full (while doubling fits 32 bits). *)
Theorem array_push_pop self xs x :
  repr self xs → Z.of_nat (length xs) + 1 < 2 ^ 32 → granted (grow_request self 1) →
  ∃ a a', array_push alloc_ok self x = Ret a ∧ repr a (xs ++ [x])
    ∧ array_pop a = Ret (x, a') ∧ repr a' xs
    ∧ (size self = capacity self → capacity self < 2 ^ 31 →
       2 * capacity self ≤ capacity a).
Proof.
  intros Hr Hlt Hg. destruct (array_push_repr self xs x Hr Hlt Hg) as (a & Hp & Ha & Hcap).
  destruct (array_pop_repr a xs x Ha) as (a' & Hpop & Ha').
  exists a, a'. split_and!; [done..|]. intros Hfull Hhalf. rewrite Hcap.
  pose proof (repr_capacity _ _ Hr). unfold grown_capacity.
  rewrite wrap32_small by lia. replace (capacity self <? size self + 1) with true by lia. lia.
Qed.

(** Searching a sorted array finds an equal element, or the place where the
    needle keeps the array sorted. *)
Theorem array_search_sorted_with_found fuel self xs compare v :
  Comparison compare → repr self xs → sorted compare xs → (length xs ≤ fuel)%nat →
  ∃ m ex, array_search_sorted_with fuel self compare v = Ret (Z.of_nat m, ex)
    ∧ found (λ x, compare x v) xs m ex
    ∧ (ex = false → sorted compare (take m xs ++ v :: drop m xs)).
Proof.
  intros Hcmp Hr Hs Hf.
  destruct (array_search_sorted_repr fuel self xs (λ x, Ret (compare x v)) (λ x, compare x v) Hr)
    as (m & ex & Hse & Hfd); [done|by apply sorted_monotone|done|].
  exists m, ex. split_and!; [done|done|]. intros ->. by apply sorted_insert.
Qed.

(** C38. Inserting into a strictly sorted array with a comparison function:
    if an equal element exists, the array is unchanged; otherwise the result
    is sorted and contains exactly one more element, the new one.  The one
    exception is a full array whose request for one more element the
    allocator refuses: then the insertion writes through the null pointer. *)
Theorem array_insert_sorted_with_sorted fuel self xs compare v :
  Comparison compare → repr self xs → sorted compare xs →
  (length xs ≤ fuel)%nat → Z.of_nat (length xs) + 1 < 2 ^ 32 →
  let insertion := array_insert_sorted_with zero alloc_ok fuel self compare v in
  (∃ x, x ∈ xs ∧ compare x v = 0) ∧ insertion = Ret self
  ∨ (∀ x, x ∈ xs → compare x v ≠ 0)
    ∧ if (capacity self <? size self + 1) && negb (alloc_ok (size self + 1))
      then insertion = OutOfBounds
      else ∃ a ys, insertion = Ret a ∧ repr a ys ∧ sorted compare ys ∧ ys ≡ₚ v :: xs.
Proof.
  intros Hcmp Hr Hs Hf Hlt insertion.
  destruct (insert_absent_repr fuel self xs (λ x, Ret (compare x v)) (λ x, compare x v) v Hr)
    as [Hex|(m & Hm & Hcase)]; [done|by apply sorted_monotone|done|done|by left|].
  right. split; [intros x Hx; by apply (found_absent _ _ _ x Hm)|].
  rewrite <- granted_reserve. case_decide as Hg;
    [rewrite bool_decide_true by done|rewrite bool_decide_false by done]; simpl negb; cbn iota.
  - destruct Hcase as (a & Hi & Ha). exists a, (take m xs ++ v :: drop m xs).
    split_and!; [done|done|by apply sorted_insert|].
    rewrite <- Permutation_middle. by rewrite take_drop.
  - done.
Qed.

(** C39. Inserting by an integer field overflows: the first key that the
    search compares is that of the middle element, and when that key and the
    new one, converted to [int], are too far apart for their difference to
    fit an [int], the comparison is a signed overflow. *)
Theorem array_insert_sorted_by_overflow fuel self xs (field : A → Z) x v :
  repr self xs → (0 < fuel)%nat → xs !! (length xs / 2)%nat = Some x →
  ¬ - 2 ^ 31 ≤ to_int (field x) - to_int (field v) < 2 ^ 31 →
  array_insert_sorted_by zero alloc_ok fuel self field v = OutOfBounds.
Proof.
  intros Hr Hf Hx Hd. pose proof (repr_size _ _ Hr) as Hs. pose proof (repr_le _ _ Hr).
  pose proof (repr_capacity _ _ Hr). pose proof (lookup_lt_Some _ _ _ Hx) as Hlen.
  pose proof (read_holds _ _ xs _ x (repr_holds _ _ Hr) Hx) as Hread.
  assert (compare_int (field x) (field v) = OutOfBounds) as Hc.
  { unfold compare_int. by replace (_ && _) with false by lia. }
  unfold array_insert_sorted_by, insert_absent, array_search_sorted_by, array_search_sorted.
  rewrite Z.sub_0_r, Hs, wrap32_small by lia.
  replace (Z.of_nat (length xs) =? 0) with false by lia.
  destruct fuel as [|f]; [lia|]. cbn [search_loop].
  destruct (Z.ltb_spec 1 (Z.of_nat (length xs))) as [H1|H1].
  - change 2 with (Z.of_nat 2). rewrite <- Nat2Z.inj_div, Z.add_0_l.
    rewrite wrap32_small by lia. rewrite Hread, res_bind_ret, Hc. done.
  - assert (length xs = 1%nat) as H1' by lia. rewrite H1' in Hread.
    rewrite res_bind_ret. change (Z.of_nat (1 / 2)) with 0 in Hread.
    rewrite Hread, res_bind_ret, Hc. done.
Qed.

Lemma to_int_small x : - 2 ^ 31 ≤ x < 2 ^ 31 → to_int x = x.
Proof. intros Hx. unfold to_int. rewrite Z.mod_small; lia. Qed.

(** Inserting by an integer field into an array sorted by it keeps it
    sorted, provided the keys are at least [-2^30] and below [2^30] and a full
    array gets room for one more element. *)
Theorem array_insert_sorted_by_sorted fuel self xs (field : A → Z) v :
  repr self xs → sorted (λ x y, field x - field y) xs →
  Forall (λ x, - 2 ^ 30 ≤ field x < 2 ^ 30) (v :: xs) →
  (length xs ≤ fuel)%nat → Z.of_nat (length xs) + 1 < 2 ^ 32 →
  granted (reserve_request self (size self + 1)) →
  ∃ a ys, array_insert_sorted_by zero alloc_ok fuel self field v = Ret a ∧ repr a ys
    ∧ sorted (λ x y, field x - field y) ys
    ∧ ((∃ x, x ∈ xs ∧ field x = field v) ∧ ys = xs ∨ ys ≡ₚ v :: xs).
Proof.
  intros Hr Hs [Hv Hxs]%Forall_cons Hf Hlt Hg. rewrite Forall_forall in Hxs.
  assert (Comparison (λ x y, field x - field y)) as Hcmp by (split; lia).
  destruct (insert_absent_repr fuel self xs (λ x, compare_int (field x) (field v))
    (λ x, field x - field v) v Hr) as [[(x & ? & ?) Hi]|(m & Hm & Hcase)].
  { intros x Hx%Hxs. cbv beta in Hx. unfold compare_int. rewrite !to_int_small by lia.
    by replace (_ && _) with true by lia. }
  { by apply (sorted_monotone (λ x y, field x - field y)). } { done. } { done. }
  - exists self, xs. split_and!; [done..|]. left. split; [|done]. exists x. split; [done|lia].
  - rewrite decide_True in Hcase by done. destruct Hcase as (a & Hi & Ha).
    exists a, (take m xs ++ v :: drop m xs). split_and!; [done|done|..].
    + by apply (sorted_insert (λ x y, field x - field y)).
    + right. rewrite <- Permutation_middle. by rewrite take_drop.
Qed.
End ops.

(** ** Sequences of operations *)

Section sequences.
Context {A : Type} (zero : A).
Implicit Types (xs ys : list A) (self a : Array A).

(** A sequence of operations, each with the allocator's answers at that
    time. *)
Abbreviation op_list := (list ((Z → bool) * array_op (A:=A))).

Fixpoint exec_ops (ops : op_list) self : res (Array A) :=
  match ops with
  | [] => Ret self
  | (alloc_ok, op) :: ops' => a ← exec_op zero alloc_ok op self; exec_ops ops' a
  end.

Fixpoint list_ops (ops : op_list) xs : option (list A) :=
  match ops with
  | [] => Some xs
  | (_, op) :: ops' => list_op zero op xs ≫= list_ops ops'
  end.

(** The sequence reaches an operation whose request the allocator refuses;
    the array stands for the list up to there. *)
Definition refused_at (ops : op_list) self xs : Prop :=
  ∃ pre alloc_ok op post a ys n,
    ops = pre ++ (alloc_ok, op) :: post
    ∧ exec_ops pre self = Ret a ∧ list_ops pre xs = Some ys ∧ repr a ys
    ∧ op_request op a = Some n ∧ alloc_ok n = false.

Lemma refused_later alloc_ok op ops self xs a ys :
  exec_op zero alloc_ok op self = Ret a → list_op zero op xs = Some ys →
  refused_at ops a ys → refused_at ((alloc_ok, op) :: ops) self xs.
Proof.
  intros He Hl (pre & alloc_ok' & op' & post & a' & ys' & n & -> & Hpre & Hys & H).
  exists ((alloc_ok, op) :: pre), alloc_ok', op', post, a', ys', n.
  split; [done|]. split; [simpl; by rewrite He|]. split; [simpl; by rewrite Hl|done].
Qed.

(** C11. The growable array refines the list: starting from a new array, any
    sequence of operations that is defined on lists (indices in range, fewer
    than [2^32] elements) runs without touching memory outside the block or
    reading a cell that was never written, and ends in an array that stands
    for the resulting list, unless the allocator refuses a block on the way;
    up to that operation the array stands for the list. *)
Theorem array_refines_list ops ys :
  list_ops ops [] = Some ys →
  (∃ a, exec_ops ops array_new = Ret a ∧ repr a ys) ∨ refused_at ops array_new [].
Proof.
  assert (∀ a xs, repr a xs → list_ops ops xs = Some ys →
    (∃ a', exec_ops ops a = Ret a' ∧ repr a' ys) ∨ refused_at ops a xs) as Hgen.
  { induction ops as [|[alloc_ok op] ops IH]; intros a xs Hr; simpl.
    - intros [= ->]. eauto.
    - intros (zs & Hop & Hops)%bind_Some.
      destruct (decide (granted alloc_ok (op_request op a))) as [Hg|Hg].
      + destruct (exec_op_refines zero alloc_ok op a xs zs Hr Hop Hg) as (a1 & Ha1 & Hr1).
        destruct (IH a1 zs Hr1 Hops) as [?|?]; [left; by rewrite Ha1|].
        right. by eapply refused_later.
      + right. unfold granted in Hg. destruct (op_request op a) as [n|] eqn:Hn; [|done].
        exists [], alloc_ok, op, ops, a, xs, n. split_and!; try done.
        by destruct (alloc_ok n). }
  apply Hgen, array_new_repr.
Qed.
End sequences.

(** ** Witnesses *)

Definition small_array : Array Z := MkArray (Some (Some <$> [3; 5])) 2 2.

Lemma small_array_repr : repr small_array [3; 5].
Proof. split; simpl; [done|lia|]. split; [done|]. by exists []. Qed.

Lemma array_refines_list_witness :
  let yes (_ : Z) := true in
  let ops := [(yes, OpPush 1); (yes, OpPush 2); (yes, OpSplice 1 1 [7; 8; 9]);
              (yes, OpErase 0); (yes, OpPop)] in
  (∃ a, exec_ops 0 ops array_new = Ret a ∧ repr a [7; 8]) ∨ refused_at 0 ops array_new [].
Proof. intros yes ops. refine (array_refines_list 0 ops [7; 8] _). by vm_compute. Defined.

Lemma refused_request_unnoticed_witness :
  exec_op 0 (λ n, n <? 4) (OpPush 7) small_array = OutOfBounds.
Proof.
  refine (refused_request_unnoticed 0 (λ n, n <? 4) (OpPush 7) small_array [3; 5] [3; 5; 7] 8
    small_array_repr _ _ _); by vm_compute.
Defined.

#[export] Instance sub_comparison : Comparison Z.sub.
Proof. split; lia. Qed.

Lemma small_array_sorted : sorted Z.sub [3; 5].
Proof.
  intros i j x y Hx Hy Hij. destruct i as [|[|i]], j as [|[|j]]; simplify_eq/=; lia.
Qed.

Lemma array_insert_sorted_with_sorted_witness :
  let insertion := array_insert_sorted_with 0 (λ _, true) 5 small_array Z.sub 4 in
  (∃ x, x ∈ [3; 5] ∧ x - 4 = 0) ∧ insertion = Ret small_array
  ∨ (∀ x, x ∈ [3; 5] → x - 4 ≠ 0)
    ∧ ∃ a ys, insertion = Ret a ∧ repr a ys ∧ sorted Z.sub ys ∧ ys ≡ₚ 4 :: [3; 5].
Proof.
  refine (array_insert_sorted_with_sorted 0 (λ _, true) 5 small_array [3; 5] Z.sub 4
    sub_comparison small_array_repr small_array_sorted _ _); concrete.
Defined.

(** The keys [-2^31] and [2^32 + 1], which [int] holds as 1. *)
Lemma array_insert_sorted_by_overflow_witness :
  array_insert_sorted_by 0 (λ _, true) 5
    (MkArray (Some (Some <$> [- 2 ^ 31; - 2 ^ 31; 4])) 3 3) id (2 ^ 32 + 1)
  = OutOfBounds.
Proof.
  refine (array_insert_sorted_by_overflow 0 (λ _, true) 5
    (MkArray (Some (Some <$> [- 2 ^ 31; - 2 ^ 31; 4])) 3 3) [- 2 ^ 31; - 2 ^ 31; 4] id
    (- 2 ^ 31) (2 ^ 32 + 1) _ _ _ _).
  - split; simpl; [done|lia|]. split; [done|]. by exists [].
  - concrete.
  - done.
  - intros []. vm_compute in H. by apply H.
Defined.

Lemma array_insert_sorted_by_sorted_witness :
  ∃ a ys, array_insert_sorted_by 0 (λ _, true) 5 small_array id 4 = Ret a ∧ repr a ys
    ∧ sorted (λ x y, id x - id y) ys
    ∧ ((∃ x, x ∈ [3; 5] ∧ id x = id 4) ∧ ys = [3; 5] ∨ ys ≡ₚ 4 :: [3; 5]).
Proof.
  refine (array_insert_sorted_by_sorted 0 (λ _, true) 5 small_array [3; 5] id 4
    small_array_repr small_array_sorted _ _ _ _);
    [repeat (apply Forall_cons; split; [unfold id; lia|]); constructor|concrete..|by vm_compute].
Defined.
