(* ===== verification/CharRange.v ===== *)
(** * Character sets: [set_contains] of [parser.h]

    A character set is a sorted array of ranges, searched by bisection with
    an early exit.  [set_contains_spec] is its equivalence with a linear
    search. *)

From S2P Require Import Prelude.

Record TSCharacterRange := MkRange { range_start : Z; range_end : Z }.

Definition range_contains (lookahead : Z) (r : TSCharacterRange) : bool :=
  (range_start r <=? lookahead) && (lookahead <=? range_end r).

(** [ranges[i]]. *)
Definition range_at (ranges : list TSCharacterRange) (i : Z) : res TSCharacterRange :=
  match ranges !! Z.to_nat i with
  | Some r => Ret r
  | None => OutOfBounds
  end.

(** The [while (size > 1)] loop; [None] when it returns [true]. *)
Fixpoint set_contains_loop (fuel : nat) (ranges : list TSCharacterRange)
    (lookahead index size : Z) : res (option Z) :=
  match fuel with
  | O => OutOfFuel
  | S f =>
    if 1 <? size then
      let half_size := size / 2 in
      let mid_index := wrap32 (index + half_size) in
      range ← range_at ranges mid_index;
      if range_contains lookahead range then Ret None
      else
        set_contains_loop f ranges lookahead
          (if range_end range <? lookahead then mid_index else index)
          (wrap32 (size - half_size))
    else Ret (Some index)
  end.

Definition set_contains (fuel : nat) (ranges : list TSCharacterRange) (len lookahead : Z)
    : res bool :=
  r ← set_contains_loop fuel ranges lookahead 0 (wrap32 (len - 0));
  match r with
  | None => Ret true
  | Some index =>
    range ← range_at ranges index;
    Ret (range_contains lookahead range)
  end.

(** The ranges are in increasing order and disjoint. *)
Definition ranges_sorted (ranges : list TSCharacterRange) : Prop :=
  (∀ i r, ranges !! i = Some r → range_start r ≤ range_end r)
  ∧ (∀ i j r s, ranges !! i = Some r → ranges !! j = Some s → (i < j)%nat →
       range_end r < range_start s).

Section search.
Context (ranges : list TSCharacterRange) (c : Z).
Context (Hsorted : ranges_sorted ranges) (Hlen : Z.of_nat (length ranges) < 2 ^ 32).

Lemma range_at_lookup (i : nat) r : ranges !! i = Some r → range_at ranges (Z.of_nat i) = Ret r.
Proof. intros Hr. unfold range_at. by rewrite Nat2Z.id, Hr. Qed.

(** The loop narrows the search to one range, or has found one. *)
Lemma set_contains_loop_spec fuel (i k : nat) :
  (0 < k)%nat → (i + k ≤ length ranges)%nat → (k ≤ fuel)%nat →
  ∃ o, set_contains_loop fuel ranges c (Z.of_nat i) (Z.of_nat k) = Ret o
    ∧ match o with
      | None => ∃ j r, ranges !! j = Some r ∧ range_contains c r = true
      | Some z => ∃ m, z = Z.of_nat m ∧ (i ≤ m < i + k)%nat
          ∧ ∀ j r, ranges !! j = Some r → (i ≤ j < i + k)%nat → j ≠ m →
              range_contains c r = false
      end.
Proof.
  revert i k. induction fuel as [|f IH]; intros i k Hk Hik Hf; [lia|].
  cbn [set_contains_loop].
  destruct (Z.ltb_spec 1 (Z.of_nat k)) as [H1|H1]; cycle 1.
  { eexists. split; [done|]. exists i. split_and!; [done|lia|lia|]. intros. lia. }
  set (h := (k / 2)%nat).
  assert (0 < h < k ∧ h + h ≤ k)%nat as Hh.
  { pose proof (Nat.div_mod_eq k 2). pose proof (Nat.mod_upper_bound k 2).
    unfold h. clear -H1 H H0. lia. }
  replace (Z.of_nat k / 2) with (Z.of_nat h) by (unfold h; by rewrite Nat2Z.inj_div).
  rewrite <- Nat2Z.inj_add, wrap32_small by lia.
  destruct (lookup_lt_is_Some_2 ranges (i + h)) as [r Hr]; [lia|].
  rewrite (range_at_lookup _ _ Hr), res_bind_ret.
  destruct (range_contains c r) eqn:Hc.
  { exists None. split; [done|]. by exists (i + h)%nat, r. }
  replace (Z.of_nat k - Z.of_nat h) with (Z.of_nat (k - h)) by lia.
  rewrite wrap32_small by lia.
  destruct (Z.ltb_spec (range_end r) c) as [Hgt|Hle].
  - destruct (IH (i + h)%nat (k - h)%nat) as (o & -> & Ho); [lia..|].
    exists o. split; [done|]. destruct o as [z|]; [|done].
    destruct Ho as (m & -> & Hm & Hno). exists m. split_and!; [done|lia|lia|].
    intros j s Hs Hj Hne. destruct (decide (i + h ≤ j)%nat) as [|Hlt];
      [apply (Hno j s Hs); lia|].
    pose proof (proj1 Hsorted _ _ Hr) as H2.
    pose proof (proj2 Hsorted j (i + h)%nat s r Hs Hr ltac:(lia)) as H3.
    revert Hc Hgt. unfold range_contains. clear -H2 H3. lia.
  - destruct (IH i (k - h)%nat) as (o & -> & Ho); [lia..|].
    exists o. split; [done|]. destruct o as [z|]; [|done].
    destruct Ho as (m & -> & Hm & Hno). exists m. split_and!; [done|lia|lia|].
    intros j s Hs Hj Hne. destruct (decide (j < i + (k - h))%nat) as [|Hge];
      [apply (Hno j s Hs); lia|].
    destruct (decide (j = (i + h)%nat)) as [->|Hne2]; [by simplify_eq|].
    pose proof (proj1 Hsorted _ _ Hr) as H2.
    pose proof (proj2 Hsorted (i + h)%nat j r s Hr Hs ltac:(lia)) as H3.
    revert Hc. unfold range_contains. clear -H2 H3 Hle. lia.
Qed.

(** C40. The bisection of a character set answers membership: for every
    non-empty sorted array of disjoint ranges, of any length below [2^32],
    [set_contains] terminates inside the array and returns whether some range
    contains the character. *)
Theorem set_contains_spec fuel :
  ranges ≠ [] → (length ranges ≤ fuel)%nat →
  set_contains fuel ranges (Z.of_nat (length ranges)) c
  = Ret (existsb (range_contains c) ranges).
Proof.
  intros Hne Hf.
  assert (0 < length ranges)%nat as Hpos.
  { apply Nat.neq_0_lt_0. by intros ?%nil_length_inv. }
  unfold set_contains. rewrite Z.sub_0_r, wrap32_small by lia.
  destruct (set_contains_loop_spec fuel 0 (length ranges)) as (o & Hl & Ho);
    [done|lia|done|].
  change (Z.of_nat 0) with 0 in Hl. rewrite Hl, res_bind_ret. destruct o as [z|]; cycle 1.
  { destruct Ho as (j & r & Hr & Hc). f_equal. symmetry. apply existsb_exists. exists r.
    split; [|done]. apply list_elem_of_In. by eapply list_elem_of_lookup_2. }
  destruct Ho as (m & -> & Hm & Hno).
  destruct (lookup_lt_is_Some_2 ranges m) as [r Hr]; [lia|].
  rewrite (range_at_lookup _ _ Hr), res_bind_ret. f_equal.
  destruct (existsb (range_contains c) ranges) eqn:He.
  - apply existsb_exists in He as (s & [j Hs]%list_elem_of_In%list_elem_of_lookup & Hc).
    destruct (decide (j = m)) as [->|Hjm]; [by simplify_eq|].
    rewrite (Hno j s Hs) in Hc; [done| |done]. apply lookup_lt_Some in Hs. lia.
  - apply not_true_iff_false. intros Hc. apply not_true_iff_false in He. apply He.
    apply existsb_exists. exists r. split; [|done].
    apply list_elem_of_In. by eapply list_elem_of_lookup_2.
Qed.
End search.

Lemma set_contains_spec_witness :
  set_contains 5 [MkRange 1 2; MkRange 5 9; MkRange 20 20] 3 7
  = Ret (existsb (range_contains 7) [MkRange 1 2; MkRange 5 9; MkRange 20 20]).
Proof.
  refine (set_contains_spec [MkRange 1 2; MkRange 5 9; MkRange 20 20] 7 _ _ 5 _ _);
    [|concrete..].
  split.
  - intros i r Hr. destruct i as [|[|[|i]]]; simplify_eq/=; lia.
  - intros i j r s Hr Hs Hij.
    destruct i as [|[|[|i]]], j as [|[|[|j]]]; simplify_eq/=; lia.
Defined.
