(* ===== verification/SymbolSets.v ===== *)
(** * Sets of grammar symbols

    The number of a symbol in binary, and sets of symbols as binary tries: the
    checks of the parse tables look up some hundred thousand symbols. *)

From stdpp Require Import pmap.
From S2P Require Import Prelude.
From S2P Require Import Symbols.

(** The number of a symbol plus one. *)
Definition symbol_code (s : ts_symbol) : positive :=
  match s with
  | ts_builtin_sym_end => 1
  | aux_sym_asmBody_token1 => 2
  | anon_sym_SEMI => 3
  | anon_sym_COLON => 4
  | anon_sym_COMMA => 5
  | aux_sym_asmBody_token2 => 6
  | aux_sym_asmBody_token3 => 7
  | anon_sym_LBRACK => 8
  | anon_sym_RBRACK => 9
  | anon_sym_LPAREN => 10
  | anon_sym_RPAREN => 11
  | anon_sym_DOT_DOT => 12
  | aux_sym__literalString_token1 => 13
  | anon_sym_POUND => 14
  | aux_sym__literalInt_token1 => 15
  | aux_sym__literalInt_token2 => 16
  | aux_sym__literalInt_token3 => 17
  | aux_sym__literalFloat_token1 => 18
  | aux_sym_ppUsesBlock_token1 => 19
  | aux_sym_ppUsesBlock_token2 => 20
  | aux_sym_ppUsesBlock_token3 => 21
  | anon_sym_DOT => 22
  | sym_kLt => 23
  | sym_kEq => 24
  | sym_kNeq => 25
  | sym_kGt => 26
  | sym_kLte => 27
  | sym_kGte => 28
  | sym_kAdd => 29
  | sym_kSub => 30
  | sym_kMul => 31
  | sym_kFdiv => 32
  | sym_kAt => 33
  | sym_kHat => 34
  | sym_kAssign => 35
  | sym_kAssignAdd => 36
  | sym_kAssignSub => 37
  | sym_kAssignMul => 38
  | sym_kAssignDiv => 39
  | sym_kTrue => 40
  | sym_kFalse => 41
  | sym_labelNumber => 42
  | sym__space => 43
  | sym_ppDirective => 44
  | sym_comment => 45
  | sym_ppFragmentExpr => 46
  | sym_ppFragmentStmt => 47
  | sym__literalStringMultiline => 48
  | sym_identifier => 49
  | sym_kConstref => 50
  | sym_kOut => 51
  | sym_kAbsolute => 52
  | sym_kRead => 53
  | sym_kWrite => 54
  | sym_kImplements => 55
  | sym_kDefault => 56
  | sym_kNodefault => 57
  | sym_kStored => 58
  | sym_kIndex => 59
  | sym_kDispId => 60
  | sym_kObjcclass => 61
  | sym_kObjccategory => 62
  | sym_kObjcprotocol => 63
  | sym_kHelper => 64
  | sym_kGeneric => 65
  | sym_kSpecialize => 66
  | sym_kOtherwise => 67
  | sym_kRaiseAt => 68
  | sym_kOn => 69
  | sym_kOperator => 70
  | sym_kReference => 71
  | sym_kPublished => 72
  | sym_kPublic => 73
  | sym_kProtected => 74
  | sym_kPrivate => 75
  | sym_kStrict => 76
  | sym_kRequired => 77
  | sym_kOptional => 78
  | sym_kForward => 79
  | sym_kStatic => 80
  | sym_kVirtual => 81
  | sym_kAbstract => 82
  | sym_kSealed => 83
  | sym_kDynamic => 84
  | sym_kOverride => 85
  | sym_kOverload => 86
  | sym_kReintroduce => 87
  | sym_kStdcall => 88
  | sym_kCdecl => 89
  | sym_kCppdecl => 90
  | sym_kPascal => 91
  | sym_kRegister => 92
  | sym_kMwpascal => 93
  | sym_kExternal => 94
  | sym_kName => 95
  | sym_kMessage => 96
  | sym_kDeprecated => 97
  | sym_kExperimental => 98
  | sym_kPlatform => 99
  | sym_kUnimplemented => 100
  | sym_kCvar => 101
  | sym_kExport => 102
  | sym_kFar => 103
  | sym_kNear => 104
  | sym_kSafecall => 105
  | sym_kAssembler => 106
  | sym_kNostackframe => 107
  | sym_kInterrupt => 108
  | sym_kNoreturn => 109
  | sym_kIocheck => 110
  | sym_kLocal => 111
  | sym_kHardfloat => 112
  | sym_kSoftfloat => 113
  | sym_kMs_abi_default => 114
  | sym_kMs_abi_cdecl => 115
  | sym_kSaveregisters => 116
  | sym_kSysv_abi_default => 117
  | sym_kSysv_abi_cdecl => 118
  | sym_kVectorcall => 119
  | sym_kVarargs => 120
  | sym_kWinapi => 121
  | sym_kAlias => 122
  | sym_kDelayed => 123
  | sym_kAnd => 124
  | sym_kArray => 125
  | sym_kAs => 126
  | sym_kAsm => 127
  | sym_kBegin => 128
  | sym_kCase => 129
  | sym_kClass => 130
  | sym_kConst => 131
  | sym_kConstructor => 132
  | sym_kDestructor => 133
  | sym_kDispInterface => 134
  | sym_kDiv => 135
  | sym_kDo => 136
  | sym_kDownto => 137
  | sym_kElse => 138
  | sym_kEnd => 139
  | sym_kExcept => 140
  | sym_kExports => 141
  | sym_kFile => 142
  | sym_kFinalization => 143
  | sym_kFinally => 144
  | sym_kFor => 145
  | sym_kFunction => 146
  | sym_kGoto => 147
  | sym_kIf => 148
  | sym_kImplementation => 149
  | sym_kIn => 150
  | sym_kInherited => 151
  | sym_kInitialization => 152
  | sym_kInline => 153
  | sym_kInterface => 154
  | sym_kIs => 155
  | sym_kLabel => 156
  | sym_kLibrary => 157
  | sym_kMod => 158
  | sym_kNil => 159
  | sym_kNot => 160
  | sym_kObject => 161
  | sym_kOf => 162
  | sym_kOr => 163
  | sym_kPacked => 164
  | sym_kProcedure => 165
  | sym_kProgram => 166
  | sym_kProperty => 167
  | sym_kRaise => 168
  | sym_kRecord => 169
  | sym_kRepeat => 170
  | sym_kResourcestring => 171
  | sym_kSet => 172
  | sym_kShl => 173
  | sym_kShr => 174
  | sym_kString => 175
  | sym_kThen => 176
  | sym_kThreadvar => 177
  | sym_kTo => 178
  | sym_kTry => 179
  | sym_kType => 180
  | sym_kUnit => 181
  | sym_kUntil => 182
  | sym_kUses => 183
  | sym_kVar => 184
  | sym_kWhile => 185
  | sym_kWith => 186
  | sym_kXor => 187
  | sym_root => 188
  | sym_program => 189
  | sym_library => 190
  | sym_unit => 191
  | sym_interface => 192
  | sym_implementation => 193
  | sym_initialization => 194
  | sym_finalization => 195
  | sym__initializationBegin => 196
  | sym_moduleName => 197
  | sym_if => 198
  | sym_ifElse => 199
  | sym_while => 200
  | sym_repeat => 201
  | sym_for => 202
  | sym_foreach => 203
  | sym_exceptionHandler => 204
  | sym_exceptionElse => 205
  | sym_try => 206
  | sym_caseCase => 207
  | sym_case => 208
  | sym_block => 209
  | sym_asm => 210
  | sym_with => 211
  | sym_raise => 212
  | sym_statement => 213
  | sym_goto => 214
  | sym_labeledStatement => 215
  | sym__statement => 216
  | sym_ifTr => 217
  | sym_ifElseTr => 218
  | sym_whileTr => 219
  | sym_repeatTr => 220
  | sym_forTr => 221
  | sym_foreachTr => 222
  | sym_exceptionHandlerTr => 223
  | sym__exceptionHandlersTr => 224
  | sym_tryTr => 225
  | sym_caseCaseTr => 226
  | sym_caseTr => 227
  | sym_blockTr => 228
  | sym_asmTr => 229
  | sym_withTr => 230
  | sym_raiseTr => 231
  | sym_statementTr => 232
  | sym_gotoTr => 233
  | sym_labeledStatementTr => 234
  | sym__statementTr => 235
  | sym_assignment => 236
  | sym_varAssignDef => 237
  | sym_varDef => 238
  | sym_inlineVarStringTyperef => 239
  | sym_constDef => 240
  | sym_label => 241
  | sym_caseLabel => 242
  | sym__statementsTr => 243
  | sym_statementsTr => 244
  | sym_asmBody => 245
  | sym__expr => 246
  | sym_exprConditional => 247
  | sym__ref => 248
  | sym_lambda => 249
  | sym_inherited => 250
  | sym_exprDot => 251
  | sym_exprDeref => 252
  | sym_exprAs => 253
  | sym_exprTpl => 254
  | sym_exprSubscript => 255
  | sym_exprCall => 256
  | sym_legacyFormat => 257
  | sym_exprArgs => 258
  | sym__exprIsNot => 259
  | sym_exprBinary => 260
  | sym_exprUnary => 261
  | sym_exprParens => 262
  | sym_exprBrackets => 263
  | sym_type => 264
  | sym__anonymousRecord => 265
  | sym_declSubRange => 266
  | sym__subRangeBound => 267
  | sym__subRangeCall => 268
  | sym__subRangeUnary => 269
  | sym__subRangeBinary => 270
  | sym_typeref => 271
  | sym__typeref => 272
  | sym_typerefDot => 273
  | sym_typerefTpl => 274
  | sym_typerefPtr => 275
  | sym_typerefArgs => 276
  | sym_genericDot => 277
  | sym_genericTpl => 278
  | sym__genericName => 279
  | sym_genericArgs => 280
  | sym_genericArg => 281
  | sym__genericKeywordConstraintTyperef => 282
  | sym__literal => 283
  | sym_literalString => 284
  | sym__literalString => 285
  | sym_literalChar => 286
  | sym_literalNumber => 287
  | sym__literalInt => 288
  | sym__literalFloat => 289
  | sym_range => 290
  | aux_sym__definitions => 291
  | sym__definition => 292
  | sym_defProc => 293
  | sym__defProcImpl => 294
  | sym__defProcBody => 295
  | sym_declProcFwd => 296
  | sym__visibility => 297
  | aux_sym__declarations => 298
  | aux_sym__classDeclarations => 299
  | sym_defaultValue => 300
  | sym_declUses => 301
  | sym__usesClauseEntry => 302
  | sym__usesModule => 303
  | sym_ppUsesBlock => 304
  | sym_ppUsesBlockWithSemi => 305
  | sym__ppIf => 306
  | sym__ppElse => 307
  | sym__ppEndIf => 308
  | sym_ppBlock => 309
  | sym__ppStatementBlock => 310
  | sym_declExports => 311
  | sym_declTypes => 312
  | sym_declVars => 313
  | sym_declConsts => 314
  | sym_declType => 315
  | sym_declProc => 316
  | sym_declVar => 317
  | sym_declConst => 318
  | sym_declLabels => 319
  | sym_declLabel => 320
  | sym_declExport => 321
  | sym_declEnum => 322
  | sym_declEnumValue => 323
  | sym_declSet => 324
  | sym_declArray => 325
  | sym_arrayOfConstType => 326
  | sym_arrayOfConstTyperef => 327
  | sym_declFile => 328
  | sym_declString => 329
  | sym_declProcRef => 330
  | sym_declMetaClass => 331
  | sym_declClass => 332
  | sym_declIntf => 333
  | sym_declHelper => 334
  | sym_guid => 335
  | sym__declClass => 336
  | sym_declSection => 337
  | sym_ppDeclSection => 338
  | aux_sym__declFields => 339
  | sym_declField => 340
  | sym_declProp => 341
  | sym_declPropArgs => 342
  | sym_declVariant => 343
  | sym_declVariantClause => 344
  | sym_declVariantField => 345
  | sym__declProc => 346
  | sym__declOperator => 347
  | sym_operatorDot => 348
  | sym__operatorName => 349
  | sym_operatorName => 350
  | sym_declArgs => 351
  | sym_declArg => 352
  | sym__procAttribute => 353
  | sym__procAttributeNoExt => 354
  | sym__procAttributesPp => 355
  | sym_procAttribute => 356
  | sym_rttiAttributes => 357
  | sym_procExternal => 358
  | sym__initializer => 359
  | sym_recInitializer => 360
  | sym_recInitializerField => 361
  | sym_arrInitializer => 362
  | sym_kEndDot => 363
  | sym_kDot => 364
  | aux_sym_unit_repeat1 => 365
  | aux_sym_moduleName_repeat1 => 366
  | aux_sym_exceptionElse_repeat1 => 367
  | aux_sym_case_repeat1 => 368
  | aux_sym_with_repeat1 => 369
  | aux_sym_labeledStatement_repeat1 => 370
  | aux_sym__exceptionHandlersTr_repeat1 => 371
  | aux_sym_caseLabel_repeat1 => 372
  | aux_sym__statementsTr_repeat1 => 373
  | aux_sym_asmBody_repeat1 => 374
  | aux_sym_exprTpl_repeat1 => 375
  | aux_sym_legacyFormat_repeat1 => 376
  | aux_sym_exprArgs_repeat1 => 377
  | aux_sym_type_repeat1 => 378
  | aux_sym_typerefArgs_repeat1 => 379
  | aux_sym_genericArgs_repeat1 => 380
  | aux_sym_genericArg_repeat1 => 381
  | aux_sym_literalString_repeat1 => 382
  | aux_sym_defProc_repeat1 => 383
  | aux_sym__defProcBody_repeat1 => 384
  | aux_sym_declProcFwd_repeat1 => 385
  | aux_sym_declUses_repeat1 => 386
  | aux_sym_ppUsesBlock_repeat1 => 387
  | aux_sym_ppUsesBlock_repeat2 => 388
  | aux_sym_ppUsesBlockWithSemi_repeat1 => 389
  | aux_sym_ppBlock_repeat1 => 390
  | aux_sym_ppBlock_repeat2 => 391
  | aux_sym__ppStatementBlock_repeat1 => 392
  | aux_sym__ppStatementBlock_repeat2 => 393
  | aux_sym_declExports_repeat1 => 394
  | aux_sym_declTypes_repeat1 => 395
  | aux_sym_declVars_repeat1 => 396
  | aux_sym_declConsts_repeat1 => 397
  | aux_sym_declVar_repeat1 => 398
  | aux_sym_declVar_repeat2 => 399
  | aux_sym_declLabels_repeat1 => 400
  | aux_sym_declExport_repeat1 => 401
  | aux_sym_declEnum_repeat1 => 402
  | aux_sym_declArray_repeat1 => 403
  | aux_sym_declClass_repeat1 => 404
  | aux_sym__declClass_repeat1 => 405
  | aux_sym_declProp_repeat1 => 406
  | aux_sym_declProp_repeat2 => 407
  | aux_sym_declPropArgs_repeat1 => 408
  | aux_sym_declVariant_repeat1 => 409
  | aux_sym_declVariantClause_repeat1 => 410
  | aux_sym__declProc_repeat1 => 411
  | aux_sym__procAttribute_repeat1 => 412
  | aux_sym__procAttributeNoExt_repeat1 => 413
  | aux_sym__procAttributeNoExt_repeat2 => 414
  | aux_sym__procAttributesPp_repeat1 => 415
  | aux_sym__procAttributesPp_repeat2 => 416
  | aux_sym_rttiAttributes_repeat1 => 417
  | aux_sym_rttiAttributes_repeat2 => 418
  | aux_sym_recInitializer_repeat1 => 419
  | aux_sym_arrInitializer_repeat1 => 420
  end%positive.

Lemma symbol_code_index s : symbol_code s = Pos.of_succ_nat (symbol_index s).
Proof. by destruct s. Qed.

#[export] Instance symbol_code_inj : Inj (=) (=) symbol_code.
Proof.
  intros s1 s2 Heq. rewrite !symbol_code_index in Heq.
  apply SuccNat2Pos.inj in Heq. by apply (inj symbol_index).
Qed.

(** A symbol is a token if its number is below [TOKEN_COUNT]. *)
Definition is_token (s : ts_symbol) : bool := (symbol_code s <=? 187)%positive.

Lemma is_token_index s : is_token s = true ↔ (symbol_index s < TOKEN_COUNT)%nat.
Proof. unfold is_token. rewrite symbol_code_index. unfold TOKEN_COUNT. lia. Qed.

(** ** Sets *)

Abbreviation symset := (Pmap ()).

Definition sym_in (s : ts_symbol) (m : symset) : bool :=
  if m !! symbol_code s is Some _ then true else false.

Definition sym_add (s : ts_symbol) (m : symset) : symset := <[symbol_code s := tt]> m.

Definition of_syms (ss : list ts_symbol) : symset := foldr sym_add ∅ ss.

Lemma sym_in_add s s' m : sym_in s (sym_add s' m) = true ↔ s = s' ∨ sym_in s m = true.
Proof.
  unfold sym_in, sym_add. destruct (decide (s = s')) as [->|Hne].
  - rewrite lookup_insert_eq. naive_solver.
  - rewrite lookup_insert_ne by (by intros ?%(inj symbol_code)). naive_solver.
Qed.

Lemma sym_in_of_syms s ss : sym_in s (of_syms ss) = true ↔ s ∈ ss.
Proof.
  induction ss as [|s' ss IH]; cbn [of_syms foldr].
  { split; [done|]. by intros ?%not_elem_of_nil. }
  rewrite sym_in_add, elem_of_cons. fold (of_syms ss). by rewrite IH.
Qed.

(** Whether the symbols are distinct and not in [m]. *)
Fixpoint sym_distinct (m : symset) (ss : list ts_symbol) : bool :=
  match ss with
  | [] => true
  | s :: ss => negb (sym_in s m) && sym_distinct (sym_add s m) ss
  end.

Lemma sym_distinct_sound ss m :
  sym_distinct m ss = true → NoDup ss ∧ ∀ s, s ∈ ss → sym_in s m = false.
Proof.
  revert m. induction ss as [|s ss IH]; intros m; cbn [sym_distinct].
  { split; [constructor|]. by intros ? ?%not_elem_of_nil. }
  intros [Hn%negb_true_iff Hd]%andb_prop. destruct (IH _ Hd) as [Hnd Hm].
  assert (∀ s', s' ∈ ss → s' ≠ s ∧ sym_in s' m = false) as Hss.
  { intros s' Hs'. apply Hm in Hs'. apply not_true_iff_false in Hs'.
    rewrite sym_in_add in Hs'. split; [naive_solver|]. apply not_true_iff_false. naive_solver. }
  split.
  - constructor; [|done]. intros Hs. by destruct (Hss s Hs).
  - intros s' [->|Hs']%elem_of_cons; [done|]. by apply Hss.
Qed.

Lemma sym_distinct_nodup ss : sym_distinct ∅ ss = true → NoDup ss.
Proof. by intros [? _]%sym_distinct_sound. Qed.

(** ** Values indexed by numbers *)

(** The values of [f] at some numbers; number [k] is the key [k + 1]. *)
Definition index_by {A} (f : nat → A) (ks : list nat) : Pmap A :=
  foldr (λ k m, <[Pos.of_succ_nat k := f k]> m) ∅ ks.

Lemma index_by_lookup {A} (f : nat → A) ks k v :
  0 ≤ k → index_by f ks !! Z.to_pos (k + 1) = Some v → Z.to_nat k ∈ ks ∧ v = f (Z.to_nat k).
Proof.
  intros Hk. replace (Z.to_pos (k + 1)) with (Pos.of_succ_nat (Z.to_nat k)) by lia.
  induction ks as [|q ks IH]; cbn [index_by foldr]; [by rewrite lookup_empty|].
  rewrite elem_of_cons. destruct (decide (q = Z.to_nat k)) as [->|Hne].
  - rewrite lookup_insert_eq. intros [= <-]. auto.
  - rewrite lookup_insert_ne by lia. intros [? ?]%IH. auto.
Qed.
