(* ===== verification/ParseTypes.v ===== *)
(** * Parse actions and rows of the parse table

    The types of [parser.h] the LR tables are made of, and the macros with
    which [parser.c] writes them. *)

From S2P Require Import Prelude.
From S2P Require Import Symbols.

(** ** Actions *)

(** The union [TSParseAction], tagged by its [type]. *)
Inductive TSParseAction :=
  | TSParseActionTypeShift (state : Z) (extra repetition : bool)
  | TSParseActionTypeReduce (child_count : Z) (symbol : ts_symbol)
      (dynamic_precedence : Z) (production_id : Z)
  | TSParseActionTypeAccept
  | TSParseActionTypeRecover.

(** An element of [ts_parse_actions]: the header of a group or an action. *)
Inductive TSParseActionEntry :=
  | Entry (count : Z) (reusable : bool)
  | Action (action : TSParseAction).

Definition SHIFT (state_value : Z) : TSParseAction :=
  TSParseActionTypeShift state_value false false.

Definition SHIFT_REPEAT (state_value : Z) : TSParseAction :=
  TSParseActionTypeShift state_value false true.

Definition SHIFT_EXTRA : TSParseAction := TSParseActionTypeShift 0 true false.

Definition REDUCE (symbol_name : ts_symbol) (children precedence prod_id : Z) : TSParseAction :=
  TSParseActionTypeReduce children symbol_name precedence prod_id.

Definition RECOVER : TSParseAction := TSParseActionTypeRecover.

Definition ACCEPT_INPUT : TSParseAction := TSParseActionTypeAccept.

(** The initializers [[k] = {.entry = {.count = c, .reusable = r}}, a, ...]. *)
Definition actions_at (k count : Z) (reusable : bool) (acts : list TSParseAction) :
    Z * list TSParseActionEntry :=
  (k, Entry count reusable :: (Action <$> acts)).

(** ** Rows *)

(** Initializers of one row with the same value; [ACTIONS(id)] and [STATE(id)]
    are the number [id], and the model keeps which of the two is written. *)
Inductive parse_group :=
  | ACTIONS (id : Z) (symbols : list ts_symbol)
  | STATE (id : Z) (symbols : list ts_symbol).

Definition parse_row : Type := list parse_group.

Definition group_id (g : parse_group) : Z :=
  match g with ACTIONS id _ | STATE id _ => id end.

Definition group_symbols (g : parse_group) : list ts_symbol :=
  match g with ACTIONS _ ss | STATE _ ss => ss end.

(** ** Records of the small states *)

(** A group of a record of the flat array, [ACTIONS(id), count, symbols...] or
    [STATE(id), count, symbols...].  The count is the number written in the
    source, which need not be the number of symbols after it. *)
Inductive small_group :=
  | AGroup (id count : Z) (symbols : list ts_symbol)
  | SGroup (id count : Z) (symbols : list ts_symbol).

(** The record [[k] = n, groups...]: the index, the number of groups that is
    written, and the groups. *)
Definition small_run : Type := Z * Z * list small_group.

(** The elements of the array that a group is made of. *)
Definition group_elements (g : small_group) : list Z :=
  match g with
  | AGroup id count ss | SGroup id count ss =>
      id :: count :: ((λ s, Z.of_nat (symbol_index s)) <$> ss)
  end.

(** ** Entries *)

(** The symbols with an initializer. *)
Definition row_symbols (r : parse_row) : list ts_symbol := r ≫= group_symbols.

(** The element of the row at the index of a symbol, 0 if it has no
    initializer. *)
Definition parse_entry (r : parse_row) (s : ts_symbol) : Z :=
  default 0 (group_id <$> List.find (λ g, existsb (symbol_eqb s) (group_symbols g)) r).

Lemma parse_entry_inv r s :
  parse_entry r s ≠ 0 → ∃ g, g ∈ r ∧ s ∈ group_symbols g ∧ parse_entry r s = group_id g.
Proof.
  unfold parse_entry. destruct (List.find _ r) as [g|] eqn:Hf; [|done]. intros _.
  apply find_some in Hf as [Hg (s' & Hs' & ->%symbol_eqb_spec)%existsb_exists].
  exists g. by rewrite !list_elem_of_In.
Qed.

Lemma parse_entry_group r s g :
  NoDup (row_symbols r) → g ∈ r → s ∈ group_symbols g → parse_entry r s = group_id g.
Proof.
  unfold parse_entry. induction r as [|g' r IH]; [by intros ? ?%not_elem_of_nil|].
  intros (Hg' & Hdisj & Hr)%NoDup_app [->|Hg]%elem_of_cons Hs; cbn [List.find].
  - assert (existsb (symbol_eqb s) (group_symbols g') = true) as ->; [|done].
    apply existsb_exists. exists s. by rewrite <- list_elem_of_In, symbol_eqb_spec.
  - destruct (existsb (symbol_eqb s) (group_symbols g')) eqn:He; [|by apply IH].
    apply existsb_exists in He as (s' & Hs'%list_elem_of_In & ->%symbol_eqb_spec).
    exfalso. apply (Hdisj _ Hs'), list_elem_of_bind. eauto.
Qed.
