(* ===== verification/ParseActions.v ===== *)
(** * The parse actions of [parser.c]

    [ts_parse_actions] is a flat array: a header with a count, then that many
    actions, then the next header.  The groups are transcribed in order; the
    array is what the C initializer with its designators denotes. *)

From S2P Require Import Prelude.
From S2P Require Import Symbols.
From S2P Require Import ParseTypes.
From S2P Require Import Fields.

#[local] Abbreviation A := actions_at (only parsing).

Definition ts_parse_actions_0 : list (Z * list TSParseActionEntry) :=
  [
   A 0 0 false []; A 1 1 false [RECOVER]; A 3 1 true [SHIFT_EXTRA]; A 5 1 false [SHIFT_EXTRA];
   A 7 1 true [REDUCE sym_root 0 0 0]; A 9 1 true [SHIFT 3900]; A 11 1 true [SHIFT 1368];
   A 13 1 true [SHIFT 11938]; A 15 1 true [SHIFT 8473]; A 17 1 true [SHIFT 476];
   A 19 1 true [SHIFT 11225]; A 21 1 true [SHIFT 9457]; A 23 1 true [SHIFT 12311];
   A 25 1 true [SHIFT 11505]; A 27 1 true [SHIFT 12247]; A 29 1 true [SHIFT 12490];
   A 31 1 true [SHIFT 12488]; A 33 1 true [SHIFT 1993]; A 35 1 true [SHIFT 8396];
   A 37 1 true [SHIFT 12483]; A 39 1 true [SHIFT 10926]; A 41 1 true [SHIFT 1315];
   A 43 1 true [SHIFT 31]; A 45 1 true [SHIFT 3471]; A 47 1 false [SHIFT 4804];
   A 49 1 true [SHIFT 6994]; A 51 1 true [SHIFT 12264]; A 53 1 false [SHIFT 7888];
   A 55 1 true [SHIFT 7888]; A 57 1 true [SHIFT 1321]; A 59 1 true [SHIFT 9744];
   A 61 1 false [SHIFT 4701]; A 63 1 true [SHIFT 4701]; A 65 1 true [SHIFT 7765];
   A 67 1 true [SHIFT 7283]; A 69 1 true [SHIFT 13675]; A 71 1 true [SHIFT 11195];
   A 73 1 true [SHIFT 7613]; A 75 1 true [SHIFT 7884]; A 77 1 true [SHIFT 13627];
   A 79 1 true [SHIFT 12981]; A 81 1 true [SHIFT 11454]; A 83 1 true [SHIFT 11385];
   A 85 1 true [SHIFT 640]; A 87 1 true [SHIFT 4434]; A 89 1 true [SHIFT 10998];
   A 91 1 true [SHIFT 787]; A 93 1 true [SHIFT 12143]; A 95 1 true [SHIFT 11537];
   A 97 1 true [SHIFT 3738]; A 99 1 true [SHIFT 5772]; A 101 1 true [SHIFT 13148];
   A 103 1 true [SHIFT 4497]; A 105 1 true [SHIFT 7614]; A 107 1 true [SHIFT 12145];
   A 109 1 true [SHIFT 14975]; A 111 1 true [SHIFT 4087]; A 113 1 true [SHIFT 184];
   A 115 1 true [SHIFT 719]; A 117 1 true [SHIFT 15766]; A 119 1 true [SHIFT 614];
   A 121 1 true [SHIFT 143]; A 123 1 true [SHIFT 146]; A 125 1 true [SHIFT 10899];
   A 127 1 true [SHIFT 517]; A 129 1 true [SHIFT 4719]; A 131 1 true [SHIFT 4096];
   A 133 1 true [SHIFT 43]; A 135 1 true [SHIFT 10055]; A 137 1 true [SHIFT 21];
   A 139 1 true [SHIFT 10450]; A 141 1 true [SHIFT 11456]; A 143 1 true [SHIFT 561];
   A 145 1 true [SHIFT 18]; A 147 1 true [SHIFT 1378]; A 149 1 true [SHIFT 51];
   A 151 1 true [SHIFT 10395]; A 153 1 true [SHIFT 15]; A 155 1 true [SHIFT 2729];
   A 157 1 true [SHIFT 10474]; A 159 1 true [SHIFT 29]; A 161 1 true [SHIFT 10460];
   A 163 1 true [SHIFT 11]; A 165 1 true [SHIFT 37]; A 167 1 true [SHIFT 10342];
   A 169 1 true [SHIFT 49]; A 171 1 true [SHIFT 2710]; A 173 1 true [SHIFT 26];
   A 175 1 true [SHIFT 10374]; A 177 1 true [SHIFT 33]; A 179 1 true [SHIFT 10401];
   A 181 1 true [SHIFT 14]; A 183 1 true [SHIFT 35]; A 185 1 true [SHIFT 2696];
   A 187 1 true [SHIFT 39]; A 189 1 true [SHIFT 10301]; A 191 1 true [SHIFT 41];
   A 193 1 true [SHIFT 2558]; A 195 1 true [SHIFT 45]; A 197 1 true [SHIFT 9898];
   A 199 1 true [SHIFT 46]; A 201 1 true [SHIFT 2580]; A 203 1 true [SHIFT 47];
   A 205 1 true [SHIFT 10242]; A 207 1 true [SHIFT 48]; A 209 1 true [SHIFT 2581];
   A 211 1 true [REDUCE aux_sym_ppBlock_repeat2 2 0 0];
   A 213 2 true [REDUCE aux_sym_ppBlock_repeat1 2 0 0; SHIFT_REPEAT 1315];
   A 216 2 true [REDUCE aux_sym_ppBlock_repeat1 2 0 0; SHIFT_REPEAT 51];
   A 219 2 true [REDUCE aux_sym_ppBlock_repeat1 2 0 0; SHIFT_REPEAT 3471];
   A 222 2 false [REDUCE aux_sym_ppBlock_repeat1 2 0 0; SHIFT_REPEAT 4804];
   A 225 2 true [REDUCE aux_sym_ppBlock_repeat1 2 0 0; SHIFT_REPEAT 6994];
   A 228 2 true [REDUCE aux_sym_ppBlock_repeat1 2 0 0; SHIFT_REPEAT 12264];
   A 231 2 false [REDUCE aux_sym_ppBlock_repeat1 2 0 0; SHIFT_REPEAT 7888];
   A 234 2 true [REDUCE aux_sym_ppBlock_repeat1 2 0 0; SHIFT_REPEAT 7888];
   A 237 2 true [REDUCE aux_sym_ppBlock_repeat1 2 0 0; SHIFT_REPEAT 1368];
   A 240 1 true [REDUCE aux_sym_ppBlock_repeat1 2 0 0];
   A 242 2 false [REDUCE aux_sym_ppBlock_repeat1 2 0 0; SHIFT_REPEAT 4701];
   A 245 2 true [REDUCE aux_sym_ppBlock_repeat1 2 0 0; SHIFT_REPEAT 4701];
   A 248 2 true [REDUCE aux_sym_ppBlock_repeat1 2 0 0; SHIFT_REPEAT 7765];
   A 251 2 true [REDUCE aux_sym_ppBlock_repeat1 2 0 0; SHIFT_REPEAT 7283];
   A 254 2 true [REDUCE aux_sym_ppBlock_repeat1 2 0 0; SHIFT_REPEAT 13675];
   A 257 2 true [REDUCE aux_sym_ppBlock_repeat1 2 0 0; SHIFT_REPEAT 11195];
   A 260 2 true [REDUCE aux_sym_ppBlock_repeat1 2 0 0; SHIFT_REPEAT 7613];
   A 263 2 true [REDUCE aux_sym_ppBlock_repeat1 2 0 0; SHIFT_REPEAT 7884];
   A 266 2 true [REDUCE aux_sym_ppBlock_repeat1 2 0 0; SHIFT_REPEAT 11385];
   A 269 2 true [REDUCE aux_sym_ppBlock_repeat1 2 0 0; SHIFT_REPEAT 640];
   A 272 2 true [REDUCE aux_sym_ppBlock_repeat1 2 0 0; SHIFT_REPEAT 4434];
   A 275 2 true [REDUCE aux_sym_ppBlock_repeat1 2 0 0; SHIFT_REPEAT 10998];
   A 278 2 true [REDUCE aux_sym_ppBlock_repeat1 2 0 0; SHIFT_REPEAT 787];
   A 281 2 true [REDUCE aux_sym_ppBlock_repeat1 2 0 0; SHIFT_REPEAT 12143];
   A 284 2 true [REDUCE aux_sym_ppBlock_repeat1 2 0 0; SHIFT_REPEAT 11537];
   A 287 2 true [REDUCE aux_sym_ppBlock_repeat1 2 0 0; SHIFT_REPEAT 3738];
   A 290 2 true [REDUCE aux_sym_ppBlock_repeat1 2 0 0; SHIFT_REPEAT 5772];
   A 293 2 true [REDUCE aux_sym_ppBlock_repeat1 2 0 0; SHIFT_REPEAT 13148];
   A 296 2 true [REDUCE aux_sym_ppBlock_repeat1 2 0 0; SHIFT_REPEAT 4497];
   A 299 2 true [REDUCE aux_sym_ppBlock_repeat1 2 0 0; SHIFT_REPEAT 7614];
   A 302 2 true [REDUCE aux_sym_ppBlock_repeat1 2 0 0; SHIFT_REPEAT 12145];
   A 305 2 true [REDUCE aux_sym_ppBlock_repeat1 2 0 0; SHIFT_REPEAT 14975];
   A 308 2 true [REDUCE aux_sym_ppBlock_repeat1 2 0 0; SHIFT_REPEAT 4087];
   A 311 2 true [REDUCE aux_sym_ppBlock_repeat1 2 0 0; SHIFT_REPEAT 184];
   A 314 2 true [REDUCE aux_sym_ppBlock_repeat1 2 0 0; SHIFT_REPEAT 719];
   A 317 2 true [REDUCE aux_sym_ppBlock_repeat1 2 0 0; SHIFT_REPEAT 15766];
   A 320 2 true [REDUCE aux_sym_ppBlock_repeat1 2 0 0; SHIFT_REPEAT 614];
   A 323 2 true [REDUCE aux_sym_ppBlock_repeat1 2 0 0; SHIFT_REPEAT 143];
   A 326 2 true [REDUCE aux_sym_ppBlock_repeat1 2 0 0; SHIFT_REPEAT 146];
   A 329 2 true [REDUCE aux_sym_ppBlock_repeat1 2 0 0; SHIFT_REPEAT 10899];
   A 332 2 true [REDUCE aux_sym_ppBlock_repeat1 2 0 0; SHIFT_REPEAT 517];
   A 335 2 true [REDUCE aux_sym_ppBlock_repeat1 2 0 0; SHIFT_REPEAT 4719];
   A 338 2 true [REDUCE aux_sym_ppBlock_repeat1 2 0 0; SHIFT_REPEAT 4096];
   A 341 1 true [SHIFT 50]; A 343 1 true [REDUCE aux_sym_ppBlock_repeat2 1 0 0];
   A 345 1 true [REDUCE aux_sym_ppBlock_repeat1 1 0 0];
   A 347 2 true [REDUCE aux_sym_ppBlock_repeat1 1 0 0; SHIFT 3900];
   A 350 1 false [REDUCE aux_sym_ppBlock_repeat1 1 0 0];
   A 352 2 true [REDUCE aux_sym_ppBlock_repeat1 1 0 0; SHIFT 1368];
   A 355 2 true [REDUCE aux_sym_ppBlock_repeat1 1 0 0; SHIFT 11236];
   A 358 2 true [REDUCE aux_sym_ppBlock_repeat1 1 0 0; SHIFT 10450];
   A 361 2 true [REDUCE aux_sym_ppBlock_repeat1 1 0 0; SHIFT 11938];
   A 364 2 true [REDUCE aux_sym_ppBlock_repeat1 1 0 0; SHIFT 8473];
   A 367 2 true [REDUCE aux_sym_ppBlock_repeat1 1 0 0; SHIFT 11493];
   A 370 2 true [REDUCE aux_sym_ppBlock_repeat1 1 0 0; SHIFT 506];
   A 373 2 true [REDUCE aux_sym_ppBlock_repeat1 1 0 0; SHIFT 11093];
   A 376 2 true [REDUCE aux_sym_ppBlock_repeat1 1 0 0; SHIFT 9509];
   A 379 2 true [REDUCE aux_sym_ppBlock_repeat1 1 0 0; SHIFT 12311];
   A 382 2 true [REDUCE aux_sym_ppBlock_repeat1 1 0 0; SHIFT 11410];
   A 385 2 true [REDUCE aux_sym_ppBlock_repeat1 1 0 0; SHIFT 12295];
   A 388 2 true [REDUCE aux_sym_ppBlock_repeat1 1 0 0; SHIFT 2011];
   A 391 2 true [REDUCE aux_sym_ppBlock_repeat1 1 0 0; SHIFT 8222];
   A 394 2 true [REDUCE aux_sym_ppBlock_repeat1 1 0 0; SHIFT 10752]; A 397 1 true [SHIFT 6327];
   A 399 1 true [SHIFT 3654]; A 401 1 false [SHIFT 4540]; A 403 1 true [SHIFT 6664];
   A 405 1 true [SHIFT 12198]; A 407 1 false [SHIFT 7742]; A 409 1 true [SHIFT 7742];
   A 411 1 true [SHIFT 5972]; A 413 1 false [SHIFT 5456]; A 415 1 true [SHIFT 5456];
   A 417 1 true [SHIFT 7478]; A 419 1 true [SHIFT 14998]; A 421 1 true [SHIFT 7383];
   A 423 1 true [SHIFT 7384]; A 425 1 true [SHIFT 10929]; A 427 1 true [SHIFT 11400];
   A 429 1 true [SHIFT 513]; A 431 1 true [SHIFT 4398]; A 433 1 true [SHIFT 14208];
   A 435 1 true [SHIFT 13912]; A 437 1 true [SHIFT 3505]; A 439 1 true [SHIFT 6224];
   A 441 1 true [SHIFT 14043]; A 443 1 true [SHIFT 5191]; A 445 1 true [SHIFT 7389];
   A 447 1 true [SHIFT 3968]; A 449 1 true [SHIFT 219]; A 451 1 true [SHIFT 14273];
   A 453 1 true [SHIFT 142]; A 455 1 true [SHIFT 15177]; A 457 1 true [SHIFT 4490];
   A 459 1 true [SHIFT 4079]; A 461 1 true [SHIFT 12979]; A 463 1 true [SHIFT 13878];
   A 465 1 true [SHIFT 12244]; A 467 1 true [SHIFT 12317]; A 469 1 true [SHIFT 12465];
   A 471 1 true [SHIFT 13450]; A 473 1 true [SHIFT 13051]; A 475 1 true [SHIFT 12548];
   A 477 1 true [SHIFT 12911]; A 479 1 true [SHIFT 12973]; A 481 1 true [SHIFT 14996];
   A 483 1 true [SHIFT 13722]; A 485 1 true [SHIFT 13344]; A 487 1 true [SHIFT 13963];
   A 489 1 true [SHIFT 13836]; A 491 1 true [SHIFT 11626]; A 493 1 true [SHIFT 12779];
   A 495 1 true [SHIFT 12855]; A 497 1 true [SHIFT 11682]; A 499 1 true [SHIFT 11450];
   A 501 1 true [SHIFT 11462]; A 503 1 true [SHIFT 13053]; A 505 1 true [SHIFT 13214];
   A 507 1 true [SHIFT 13981]; A 509 1 true [SHIFT 12595]; A 511 1 true [SHIFT 12614];
   A 513 1 true [SHIFT 13842]; A 515 1 true [SHIFT 13034]; A 517 1 true [SHIFT 13082];
   A 519 1 true [SHIFT 12128]; A 521 1 true [SHIFT 12150]; A 523 1 true [SHIFT 13399];
   A 525 1 true [SHIFT 13440]; A 527 1 true [SHIFT 13550]; A 529 1 true [SHIFT 13589];
   A 531 1 true [SHIFT 13730]; A 533 1 true [SHIFT 13802]; A 535 1 true [SHIFT 14030];
   A 537 1 true [SHIFT 14071]; A 539 1 true [SHIFT 12640]; A 541 1 true [SHIFT 13591];
   A 543 1 true [SHIFT 11366]; A 545 1 true [SHIFT 11425]; A 547 1 true [SHIFT 13693];
   A 549 1 true [SHIFT 13567]; A 551 1 true [SHIFT 13766]; A 553 1 true [SHIFT 13927];
   A 555 1 true [SHIFT 13003]; A 557 1 true [SHIFT 13322]; A 559 1 true [SHIFT 13991];
   A 561 1 true [SHIFT 13705]; A 563 1 true [SHIFT 13219]; A 565 1 true [SHIFT 13136];
   A 567 1 true [SHIFT 12908]; A 569 1 true [SHIFT 15279]; A 571 1 true [SHIFT 15333];
   A 573 1 true [SHIFT 12381]; A 575 1 true [SHIFT 15992]; A 577 1 true [SHIFT 14395];
   A 579 1 true [SHIFT 12410]; A 581 1 true [SHIFT 15473]; A 583 1 true [SHIFT 15693];
   A 585 1 true [SHIFT 12734]; A 587 1 true [SHIFT 14396]; A 589 1 true [SHIFT 14531];
   A 591 1 true [SHIFT 14956]; A 593 1 true [SHIFT 15047]; A 595 1 true [SHIFT 15286];
   A 597 1 true [SHIFT 15349]; A 599 1 true [SHIFT 15686]; A 601 1 true [SHIFT 15773];
   A 603 1 true [SHIFT 15979]; A 605 1 true [SHIFT 13176]; A 607 1 true [SHIFT 5683];
   A 609 1 true [SHIFT 3549]; A 611 1 false [SHIFT 5173]; A 613 1 true [SHIFT 6066];
   A 615 1 true [SHIFT 12307]; A 617 1 false [SHIFT 7084]; A 619 1 true [SHIFT 7084];
   A 621 1 false [SHIFT 4841]; A 623 1 true [SHIFT 4841]; A 625 1 true [SHIFT 7013];
   A 627 1 true [SHIFT 14332]; A 629 1 true [SHIFT 7019]; A 631 1 true [SHIFT 7030];
   A 633 1 true [SHIFT 11515]; A 635 1 true [SHIFT 624]; A 637 1 true [SHIFT 5355];
   A 639 1 true [SHIFT 14377]; A 641 1 true [REDUCE sym_finalization 1 0 0];
   A 643 1 true [SHIFT 3773]; A 645 1 true [SHIFT 6168]; A 647 1 true [SHIFT 13760];
   A 649 1 true [SHIFT 4872]; A 651 1 true [SHIFT 7029]; A 653 1 true [SHIFT 3091];
   A 655 1 true [SHIFT 385]; A 657 1 true [SHIFT 15074]; A 659 1 true [SHIFT 152];
   A 661 1 true [SHIFT 15606]; A 663 1 true [SHIFT 4873]; A 665 1 true [SHIFT 4116];
   A 667 1 true [REDUCE sym_initialization 1 0 0];
   A 669 1 true [REDUCE sym__initializationBegin 1 0 0]; A 671 1 true [SHIFT 6122];
   A 673 1 true [SHIFT 3598]; A 675 1 false [SHIFT 4978]; A 677 1 true [SHIFT 6541];
   A 679 1 true [SHIFT 12302]; A 681 1 false [SHIFT 7426]; A 683 1 true [SHIFT 7426];
   A 685 1 false [SHIFT 5209]; A 687 1 true [SHIFT 5209]; A 689 1 true [SHIFT 7259];
   A 691 1 true [SHIFT 15259]; A 693 1 true [SHIFT 7264]; A 695 1 true [SHIFT 7307];
   A 697 1 true [SHIFT 11413]; A 699 1 true [SHIFT 534]; A 701 1 true [SHIFT 5327];
   A 703 1 true [SHIFT 15763]; A 705 1 true [SHIFT 81]; A 707 1 true [SHIFT 272];
   A 709 1 true [SHIFT 3771]; A 711 1 true [SHIFT 6245]; A 713 1 true [SHIFT 13521];
   A 715 1 true [SHIFT 4801]; A 717 1 true [SHIFT 7308]; A 719 1 true [SHIFT 3532];
   A 721 1 true [SHIFT 366]; A 723 1 true [SHIFT 14616]; A 725 1 true [SHIFT 139];
   A 727 1 true [SHIFT 15492]; A 729 1 true [SHIFT 4802]; A 731 1 true [SHIFT 4106];
   A 733 1 true [REDUCE aux_sym_declTypes_repeat1 2 0 0];
   A 735 2 true [REDUCE aux_sym_declTypes_repeat1 2 0 0; SHIFT_REPEAT 4009];
   A 738 1 false [REDUCE aux_sym_declTypes_repeat1 2 0 0];
   A 740 2 true [REDUCE aux_sym_declTypes_repeat1 2 0 0; SHIFT_REPEAT 1368];
   A 743 2 true [REDUCE aux_sym_declTypes_repeat1 2 0 0; SHIFT_REPEAT 12283];
   A 746 2 true [REDUCE aux_sym_declTypes_repeat1 2 0 0; SHIFT_REPEAT 12402];
   A 749 1 true [SHIFT 83]; A 751 1 true [SHIFT 214]; A 753 1 true [SHIFT 113];
   A 755 1 true [SHIFT 195]; A 757 1 true [SHIFT 129]; A 759 1 true [SHIFT 405];
   A 761 1 true [SHIFT 116]; A 763 1 true [SHIFT 220]; A 765 1 true [SHIFT 59];
   A 767 1 true [SHIFT 185]; A 769 1 true [SHIFT 131]; A 771 1 true [SHIFT 208];
   A 773 1 true [SHIFT 99]; A 775 1 true [SHIFT 226]; A 777 1 true [SHIFT 64];
   A 779 1 true [SHIFT 202]; A 781 1 true [REDUCE sym_declTypes 1 0 0];
   A 783 2 true [REDUCE sym_declTypes 1 0 0; SHIFT 4009];
   A 786 1 false [REDUCE sym_declTypes 1 0 0];
   A 788 2 true [REDUCE sym_declTypes 1 0 0; SHIFT 1368];
   A 791 2 true [REDUCE sym_declTypes 1 0 0; SHIFT 12283];
   A 794 2 true [REDUCE sym_declTypes 1 0 0; SHIFT 12402]; A 797 1 true [SHIFT 62];
   A 799 1 true [SHIFT 233]; A 801 1 true [SHIFT 65]; A 803 1 true [SHIFT 238];
   A 805 1 true [SHIFT 68]; A 807 1 true [SHIFT 247]; A 809 1 true [SHIFT 72];
   A 811 1 true [SHIFT 255]; A 813 1 true [SHIFT 76]; A 815 1 true [SHIFT 260];
   A 817 1 true [SHIFT 75]; A 819 1 true [SHIFT 209]; A 821 1 true [SHIFT 71];
   A 823 1 true [SHIFT 187]; A 825 1 true [SHIFT 84]; A 827 1 true [SHIFT 279];
   A 829 1 true [SHIFT 87]; A 831 1 true [SHIFT 286]; A 833 1 true [SHIFT 89];
   A 835 1 true [SHIFT 294]; A 837 1 true [SHIFT 91]; A 839 1 true [SHIFT 301];
   A 841 1 true [SHIFT 93]; A 843 1 true [SHIFT 306]; A 845 1 true [SHIFT 95];
   A 847 1 true [SHIFT 311]; A 849 1 true [SHIFT 97]; A 851 1 true [SHIFT 316];
   A 853 1 true [SHIFT 132]; A 855 1 true [SHIFT 321]; A 857 1 true [SHIFT 101];
   A 859 1 true [SHIFT 326]; A 861 1 true [REDUCE sym_declTypes 2 0 0];
   A 863 2 true [REDUCE sym_declTypes 2 0 0; SHIFT 4009];
   A 866 1 false [REDUCE sym_declTypes 2 0 0];
   A 868 2 true [REDUCE sym_declTypes 2 0 0; SHIFT 1368];
   A 871 2 true [REDUCE sym_declTypes 2 0 0; SHIFT 12283];
   A 874 2 true [REDUCE sym_declTypes 2 0 0; SHIFT 12402]; A 877 1 true [SHIFT 103];
   A 879 1 true [SHIFT 331]; A 881 1 true [SHIFT 105]; A 883 1 true [SHIFT 336];
   A 885 1 true [SHIFT 107]; A 887 1 true [SHIFT 343]; A 889 1 true [SHIFT 109];
   A 891 1 true [SHIFT 350]; A 893 1 true [SHIFT 111]; A 895 1 true [SHIFT 355];
   A 897 1 true [SHIFT 114]; A 899 1 true [SHIFT 361]; A 901 1 true [SHIFT 117];
   A 903 1 true [SHIFT 369]; A 905 1 true [SHIFT 120]; A 907 1 true [SHIFT 379];
   A 909 1 true [SHIFT 123]; A 911 1 true [SHIFT 387]; A 913 1 true [SHIFT 125];
   A 915 1 true [SHIFT 393]; A 917 1 true [SHIFT 127]; A 919 1 true [SHIFT 399];
   A 921 1 true [SHIFT 79]; A 923 1 true [SHIFT 265]; A 925 1 true [SHIFT 6303];
   A 927 1 true [SHIFT 3524]; A 929 1 false [SHIFT 4940]; A 931 1 true [SHIFT 6915];
   A 933 1 true [SHIFT 12238]; A 935 1 false [SHIFT 7570]; A 937 1 true [SHIFT 7570];
   A 939 1 false [SHIFT 4615]; A 941 1 true [SHIFT 4615]; A 943 1 true [SHIFT 7533];
   A 945 1 true [SHIFT 15925]; A 947 1 true [SHIFT 7511]; A 949 1 true [SHIFT 7415];
   A 951 1 true [SHIFT 11541]; A 953 1 true [SHIFT 510]; A 955 1 true [SHIFT 5303];
   A 957 1 true [SHIFT 15448]; A 959 1 true [SHIFT 3770]; A 961 1 true [SHIFT 6206];
   A 963 1 true [SHIFT 14044]; A 965 1 true [SHIFT 4734]; A 967 1 true [SHIFT 7417];
   A 969 1 true [SHIFT 3824]; A 971 1 true [SHIFT 360]; A 973 1 true [SHIFT 14500];
   A 975 1 true [SHIFT 153]; A 977 1 true [SHIFT 4525]; A 979 1 true [SHIFT 15415];
   A 981 1 true [SHIFT 4735]; A 983 1 true [SHIFT 4098];
   A 985 1 true [REDUCE sym__declProc 8 0 232];
   A 987 2 true [REDUCE sym__declProc 8 0 232; SHIFT 4114];
   A 990 1 false [REDUCE sym__declProc 8 0 232];
   A 992 2 true [REDUCE sym__declProc 8 0 232; SHIFT 4093];
   A 995 2 true [REDUCE sym__declProc 8 0 232; SHIFT 12561];
   A 998 2 true [REDUCE sym__declProc 8 0 232; SHIFT 4468];
   A 1001 2 true [REDUCE sym__declProc 8 0 232; SHIFT 12824];
   A 1004 2 true [REDUCE sym__declProc 8 0 232; SHIFT 4077];
   A 1007 2 true [REDUCE sym__declProc 8 0 232; SHIFT 3867];
   A 1010 2 true [REDUCE sym__declProc 8 0 232; SHIFT 4478];
   A 1013 2 true [REDUCE sym__declProc 8 0 232; SHIFT 14986]; A 1016 1 true [SHIFT 12561];
   A 1018 1 true [REDUCE sym__declProc 9 0 261];
   A 1020 2 true [REDUCE sym__declProc 9 0 261; SHIFT 4114];
   A 1023 1 false [REDUCE sym__declProc 9 0 261];
   A 1025 2 true [REDUCE sym__declProc 9 0 261; SHIFT 4093];
   A 1028 2 true [REDUCE sym__declProc 9 0 261; SHIFT 12561];
   A 1031 2 true [REDUCE sym__declProc 9 0 261; SHIFT 4468];
   A 1034 2 true [REDUCE sym__declProc 9 0 261; SHIFT 12824];
   A 1037 2 true [REDUCE sym__declProc 9 0 261; SHIFT 4077];
   A 1040 2 true [REDUCE sym__declProc 9 0 261; SHIFT 3867];
   A 1043 2 true [REDUCE sym__declProc 9 0 261; SHIFT 4478];
   A 1046 2 true [REDUCE sym__declProc 9 0 261; SHIFT 14986];
   A 1049 1 true [REDUCE sym__declProc 9 0 262];
   A 1051 2 true [REDUCE sym__declProc 9 0 262; SHIFT 4114];
   A 1054 1 false [REDUCE sym__declProc 9 0 262];
   A 1056 2 true [REDUCE sym__declProc 9 0 262; SHIFT 4093];
   A 1059 2 true [REDUCE sym__declProc 9 0 262; SHIFT 12561];
   A 1062 2 true [REDUCE sym__declProc 9 0 262; SHIFT 4468];
   A 1065 2 true [REDUCE sym__declProc 9 0 262; SHIFT 12824];
   A 1068 2 true [REDUCE sym__declProc 9 0 262; SHIFT 4077];
   A 1071 2 true [REDUCE sym__declProc 9 0 262; SHIFT 3867];
   A 1074 2 true [REDUCE sym__declProc 9 0 262; SHIFT 4478];
   A 1077 2 true [REDUCE sym__declProc 9 0 262; SHIFT 14986];
   A 1080 1 true [REDUCE sym__declProc 9 0 263];
   A 1082 2 true [REDUCE sym__declProc 9 0 263; SHIFT 4114];
   A 1085 1 false [REDUCE sym__declProc 9 0 263];
   A 1087 2 true [REDUCE sym__declProc 9 0 263; SHIFT 4093];
   A 1090 2 true [REDUCE sym__declProc 9 0 263; SHIFT 12561];
   A 1093 2 true [REDUCE sym__declProc 9 0 263; SHIFT 4468];
   A 1096 2 true [REDUCE sym__declProc 9 0 263; SHIFT 12824];
   A 1099 2 true [REDUCE sym__declProc 9 0 263; SHIFT 4077];
   A 1102 2 true [REDUCE sym__declProc 9 0 263; SHIFT 3867];
   A 1105 2 true [REDUCE sym__declProc 9 0 263; SHIFT 4478];
   A 1108 2 true [REDUCE sym__declProc 9 0 263; SHIFT 14986];
   A 1111 1 true [REDUCE sym__declProc 9 0 264];
   A 1113 2 true [REDUCE sym__declProc 9 0 264; SHIFT 4114];
   A 1116 1 false [REDUCE sym__declProc 9 0 264];
   A 1118 2 true [REDUCE sym__declProc 9 0 264; SHIFT 4093];
   A 1121 2 true [REDUCE sym__declProc 9 0 264; SHIFT 12561];
   A 1124 2 true [REDUCE sym__declProc 9 0 264; SHIFT 4468];
   A 1127 2 true [REDUCE sym__declProc 9 0 264; SHIFT 12824];
   A 1130 2 true [REDUCE sym__declProc 9 0 264; SHIFT 4077];
   A 1133 2 true [REDUCE sym__declProc 9 0 264; SHIFT 3867];
   A 1136 2 true [REDUCE sym__declProc 9 0 264; SHIFT 4478];
   A 1139 2 true [REDUCE sym__declProc 9 0 264; SHIFT 14986];
   A 1142 1 true [REDUCE sym__declProc 10 0 290];
   A 1144 2 true [REDUCE sym__declProc 10 0 290; SHIFT 4114];
   A 1147 1 false [REDUCE sym__declProc 10 0 290];
   A 1149 2 true [REDUCE sym__declProc 10 0 290; SHIFT 4093];
   A 1152 2 true [REDUCE sym__declProc 10 0 290; SHIFT 12561];
   A 1155 2 true [REDUCE sym__declProc 10 0 290; SHIFT 4468];
   A 1158 2 true [REDUCE sym__declProc 10 0 290; SHIFT 12824];
   A 1161 2 true [REDUCE sym__declProc 10 0 290; SHIFT 4077];
   A 1164 2 true [REDUCE sym__declProc 10 0 290; SHIFT 3867];
   A 1167 2 true [REDUCE sym__declProc 10 0 290; SHIFT 4478];
   A 1170 2 true [REDUCE sym__declProc 10 0 290; SHIFT 14986];
   A 1173 1 true [REDUCE aux_sym__declProc_repeat1 2 0 55];
   A 1175 2 true [REDUCE aux_sym__declProc_repeat1 2 0 55; SHIFT_REPEAT 4114];
   A 1178 1 false [REDUCE aux_sym__declProc_repeat1 2 0 55];
   A 1180 2 true [REDUCE aux_sym__declProc_repeat1 2 0 55; SHIFT_REPEAT 4093];
   A 1183 2 true [REDUCE aux_sym__declProc_repeat1 2 0 55; SHIFT_REPEAT 12561];
   A 1186 2 true [REDUCE aux_sym__declProc_repeat1 2 0 55; SHIFT_REPEAT 4468];
   A 1189 2 true [REDUCE aux_sym__declProc_repeat1 2 0 55; SHIFT_REPEAT 12824];
   A 1192 2 true [REDUCE aux_sym__declProc_repeat1 2 0 55; SHIFT_REPEAT 4077];
   A 1195 2 true [REDUCE aux_sym__declProc_repeat1 2 0 55; SHIFT_REPEAT 3867];
   A 1198 2 true [REDUCE aux_sym__declProc_repeat1 2 0 55; SHIFT_REPEAT 4478];
   A 1201 2 true [REDUCE aux_sym__declProc_repeat1 2 0 55; SHIFT_REPEAT 14986];
   A 1204 1 true [SHIFT 5221]; A 1206 1 true [SHIFT 13531]; A 1208 1 true [SHIFT 15043];
   A 1210 1 true [SHIFT 13929]; A 1212 1 true [SHIFT 538]; A 1214 1 true [SHIFT 13560];
   A 1216 1 true [SHIFT 13601]; A 1218 1 true [SHIFT 522]; A 1220 1 true [SHIFT 13671];
   A 1222 1 true [SHIFT 523]; A 1224 1 true [SHIFT 14038]; A 1226 1 true [SHIFT 526];
   A 1228 1 true [SHIFT 13282]; A 1230 1 true [SHIFT 542]; A 1232 1 true [SHIFT 14655];
   A 1234 1 true [SHIFT 562]; A 1236 1 true [SHIFT 14061]; A 1238 1 true [SHIFT 12912];
   A 1240 1 true [SHIFT 12737]; A 1242 1 true [SHIFT 546]; A 1244 1 true [SHIFT 12755];
   A 1246 1 true [SHIFT 549]; A 1248 1 true [SHIFT 12541]; A 1250 1 true [SHIFT 553];
   A 1252 1 true [SHIFT 12477]; A 1254 1 true [SHIFT 563]; A 1256 1 true [SHIFT 14920];
   A 1258 1 true [SHIFT 581]; A 1260 1 true [SHIFT 13676]; A 1262 1 true [SHIFT 12467];
   A 1264 1 true [SHIFT 611]; A 1266 1 true [SHIFT 15291]; A 1268 1 true [SHIFT 12550];
   A 1270 1 true [SHIFT 569]; A 1272 1 true [SHIFT 12631]; A 1274 1 true [SHIFT 570];
   A 1276 1 true [SHIFT 12719]; A 1278 1 true [SHIFT 573]; A 1280 1 true [SHIFT 12765];
   A 1282 1 true [SHIFT 14290]; A 1284 1 true [SHIFT 11630]; A 1286 1 true [SHIFT 11557];
   A 1288 1 true [SHIFT 618]; A 1290 1 true [SHIFT 11623]; A 1292 1 true [SHIFT 619];
   A 1294 1 true [SHIFT 11600]; A 1296 1 true [SHIFT 620]; A 1298 1 true [SHIFT 11576];
   A 1300 1 true [SHIFT 13985]; A 1302 1 true [SHIFT 13845]; A 1304 1 true [SHIFT 628];
   A 1306 1 true [SHIFT 12991]; A 1308 1 true [SHIFT 631]; A 1310 1 true [SHIFT 13547];
   A 1312 1 true [SHIFT 633]; A 1314 1 true [SHIFT 13543]; A 1316 1 true [SHIFT 4475];
   A 1318 1 true [SHIFT 12389]; A 1320 1 true [SHIFT 12412]; A 1322 1 true [SHIFT 645];
   A 1324 1 true [SHIFT 12375]; A 1326 1 true [SHIFT 648]; A 1328 1 true [SHIFT 12234];
   A 1330 1 true [SHIFT 649]; A 1332 1 true [SHIFT 12437];
   A 1334 1 true [REDUCE sym__declProc 3 0 11];
   A 1336 2 true [REDUCE sym__declProc 3 0 11; SHIFT 4114];
   A 1339 1 false [REDUCE sym__declProc 3 0 11];
   A 1341 2 true [REDUCE sym__declProc 3 0 11; SHIFT 4093];
   A 1344 2 true [REDUCE sym__declProc 3 0 11; SHIFT 12561];
   A 1347 2 true [REDUCE sym__declProc 3 0 11; SHIFT 4468];
   A 1350 2 true [REDUCE sym__declProc 3 0 11; SHIFT 12824];
   A 1353 2 true [REDUCE sym__declProc 3 0 11; SHIFT 4077];
   A 1356 2 true [REDUCE sym__declProc 3 0 11; SHIFT 3867];
   A 1359 2 true [REDUCE sym__declProc 3 0 11; SHIFT 4478];
   A 1362 2 true [REDUCE sym__declProc 3 0 11; SHIFT 14986]; A 1365 1 true [SHIFT 12641];
   A 1367 1 true [SHIFT 12756]; A 1369 1 true [SHIFT 661]; A 1371 1 true [SHIFT 12528];
   A 1373 1 true [SHIFT 662]; A 1375 1 true [SHIFT 12637]; A 1377 1 true [SHIFT 663];
   A 1379 1 true [SHIFT 12726]; A 1381 1 true [SHIFT 13884];
   A 1383 1 true [REDUCE sym__declProc 4 0 24];
   A 1385 2 true [REDUCE sym__declProc 4 0 24; SHIFT 4114];
   A 1388 1 false [REDUCE sym__declProc 4 0 24];
   A 1390 2 true [REDUCE sym__declProc 4 0 24; SHIFT 4093];
   A 1393 2 true [REDUCE sym__declProc 4 0 24; SHIFT 12561];
   A 1396 2 true [REDUCE sym__declProc 4 0 24; SHIFT 4468];
   A 1399 2 true [REDUCE sym__declProc 4 0 24; SHIFT 12824];
   A 1402 2 true [REDUCE sym__declProc 4 0 24; SHIFT 4077];
   A 1405 2 true [REDUCE sym__declProc 4 0 24; SHIFT 3867];
   A 1408 2 true [REDUCE sym__declProc 4 0 24; SHIFT 4478];
   A 1411 2 true [REDUCE sym__declProc 4 0 24; SHIFT 14986]; A 1414 1 true [SHIFT 12249];
   A 1416 1 true [SHIFT 12320]; A 1418 1 true [SHIFT 666]; A 1420 1 true [SHIFT 12372];
   A 1422 1 true [SHIFT 667]; A 1424 1 true [SHIFT 12445]; A 1426 1 true [SHIFT 668];
   A 1428 1 true [SHIFT 12367]; A 1430 1 true [SHIFT 13566];
   A 1432 1 true [REDUCE sym__declProc 4 0 27];
   A 1434 2 true [REDUCE sym__declProc 4 0 27; SHIFT 4114];
   A 1437 1 false [REDUCE sym__declProc 4 0 27];
   A 1439 2 true [REDUCE sym__declProc 4 0 27; SHIFT 4093];
   A 1442 2 true [REDUCE sym__declProc 4 0 27; SHIFT 12561];
   A 1445 2 true [REDUCE sym__declProc 4 0 27; SHIFT 4468];
   A 1448 2 true [REDUCE sym__declProc 4 0 27; SHIFT 12824];
   A 1451 2 true [REDUCE sym__declProc 4 0 27; SHIFT 4077];
   A 1454 2 true [REDUCE sym__declProc 4 0 27; SHIFT 3867];
   A 1457 2 true [REDUCE sym__declProc 4 0 27; SHIFT 4478];
   A 1460 2 true [REDUCE sym__declProc 4 0 27; SHIFT 14986]; A 1463 1 true [SHIFT 13133];
   A 1465 1 true [SHIFT 671]; A 1467 1 true [SHIFT 13052]; A 1469 1 true [SHIFT 672];
   A 1471 1 true [SHIFT 13084]; A 1473 1 true [SHIFT 673]; A 1475 1 true [SHIFT 13274];
   A 1477 1 true [REDUCE sym__declProc 4 0 31];
   A 1479 2 true [REDUCE sym__declProc 4 0 31; SHIFT 4114];
   A 1482 1 false [REDUCE sym__declProc 4 0 31];
   A 1484 2 true [REDUCE sym__declProc 4 0 31; SHIFT 4093];
   A 1487 2 true [REDUCE sym__declProc 4 0 31; SHIFT 12561];
   A 1490 2 true [REDUCE sym__declProc 4 0 31; SHIFT 4468];
   A 1493 2 true [REDUCE sym__declProc 4 0 31; SHIFT 12824];
   A 1496 2 true [REDUCE sym__declProc 4 0 31; SHIFT 4077];
   A 1499 2 true [REDUCE sym__declProc 4 0 31; SHIFT 3867];
   A 1502 2 true [REDUCE sym__declProc 4 0 31; SHIFT 4478];
   A 1505 2 true [REDUCE sym__declProc 4 0 31; SHIFT 14986];
   A 1508 1 true [REDUCE sym__declProc 4 0 32];
   A 1510 2 true [REDUCE sym__declProc 4 0 32; SHIFT 4114];
   A 1513 1 false [REDUCE sym__declProc 4 0 32];
   A 1515 2 true [REDUCE sym__declProc 4 0 32; SHIFT 4093];
   A 1518 2 true [REDUCE sym__declProc 4 0 32; SHIFT 12561];
   A 1521 2 true [REDUCE sym__declProc 4 0 32; SHIFT 4468];
   A 1524 2 true [REDUCE sym__declProc 4 0 32; SHIFT 12824];
   A 1527 2 true [REDUCE sym__declProc 4 0 32; SHIFT 4077];
   A 1530 2 true [REDUCE sym__declProc 4 0 32; SHIFT 3867];
   A 1533 2 true [REDUCE sym__declProc 4 0 32; SHIFT 4478];
   A 1536 2 true [REDUCE sym__declProc 4 0 32; SHIFT 14986];
   A 1539 1 true [REDUCE sym__declProc 5 0 56];
   A 1541 2 true [REDUCE sym__declProc 5 0 56; SHIFT 4114];
   A 1544 1 false [REDUCE sym__declProc 5 0 56];
   A 1546 2 true [REDUCE sym__declProc 5 0 56; SHIFT 4093];
   A 1549 2 true [REDUCE sym__declProc 5 0 56; SHIFT 12561];
   A 1552 2 true [REDUCE sym__declProc 5 0 56; SHIFT 4468];
   A 1555 2 true [REDUCE sym__declProc 5 0 56; SHIFT 12824];
   A 1558 2 true [REDUCE sym__declProc 5 0 56; SHIFT 4077];
   A 1561 2 true [REDUCE sym__declProc 5 0 56; SHIFT 3867];
   A 1564 2 true [REDUCE sym__declProc 5 0 56; SHIFT 4478];
   A 1567 2 true [REDUCE sym__declProc 5 0 56; SHIFT 14986]; A 1570 1 true [SHIFT 12914];
   A 1572 1 true [REDUCE sym__declProc 5 0 57];
   A 1574 2 true [REDUCE sym__declProc 5 0 57; SHIFT 4114];
   A 1577 1 false [REDUCE sym__declProc 5 0 57];
   A 1579 2 true [REDUCE sym__declProc 5 0 57; SHIFT 4093];
   A 1582 2 true [REDUCE sym__declProc 5 0 57; SHIFT 12561];
   A 1585 2 true [REDUCE sym__declProc 5 0 57; SHIFT 4468];
   A 1588 2 true [REDUCE sym__declProc 5 0 57; SHIFT 12824];
   A 1591 2 true [REDUCE sym__declProc 5 0 57; SHIFT 4077];
   A 1594 2 true [REDUCE sym__declProc 5 0 57; SHIFT 3867];
   A 1597 2 true [REDUCE sym__declProc 5 0 57; SHIFT 4478];
   A 1600 2 true [REDUCE sym__declProc 5 0 57; SHIFT 14986]; A 1603 1 true [SHIFT 12975];
   A 1605 1 true [SHIFT 448]; A 1607 1 true [SHIFT 12470]; A 1609 1 true [SHIFT 449];
   A 1611 1 true [SHIFT 12485]; A 1613 1 true [SHIFT 450]; A 1615 1 true [SHIFT 12492];
   A 1617 1 true [REDUCE sym__declProc 5 0 58];
   A 1619 2 true [REDUCE sym__declProc 5 0 58; SHIFT 4114];
   A 1622 1 false [REDUCE sym__declProc 5 0 58];
   A 1624 2 true [REDUCE sym__declProc 5 0 58; SHIFT 4093];
   A 1627 2 true [REDUCE sym__declProc 5 0 58; SHIFT 12561];
   A 1630 2 true [REDUCE sym__declProc 5 0 58; SHIFT 4468];
   A 1633 2 true [REDUCE sym__declProc 5 0 58; SHIFT 12824];
   A 1636 2 true [REDUCE sym__declProc 5 0 58; SHIFT 4077];
   A 1639 2 true [REDUCE sym__declProc 5 0 58; SHIFT 3867];
   A 1642 2 true [REDUCE sym__declProc 5 0 58; SHIFT 4478];
   A 1645 2 true [REDUCE sym__declProc 5 0 58; SHIFT 14986];
   A 1648 1 true [REDUCE sym__declProc 5 0 59];
   A 1650 2 true [REDUCE sym__declProc 5 0 59; SHIFT 4114];
   A 1653 1 false [REDUCE sym__declProc 5 0 59];
   A 1655 2 true [REDUCE sym__declProc 5 0 59; SHIFT 4093];
   A 1658 2 true [REDUCE sym__declProc 5 0 59; SHIFT 12561];
   A 1661 2 true [REDUCE sym__declProc 5 0 59; SHIFT 4468];
   A 1664 2 true [REDUCE sym__declProc 5 0 59; SHIFT 12824];
   A 1667 2 true [REDUCE sym__declProc 5 0 59; SHIFT 4077];
   A 1670 2 true [REDUCE sym__declProc 5 0 59; SHIFT 3867];
   A 1673 2 true [REDUCE sym__declProc 5 0 59; SHIFT 4478];
   A 1676 2 true [REDUCE sym__declProc 5 0 59; SHIFT 14986]; A 1679 1 true [SHIFT 13374];
   A 1681 1 true [SHIFT 13968]; A 1683 1 true [SHIFT 453]; A 1685 1 true [SHIFT 13023];
   A 1687 1 true [SHIFT 454]; A 1689 1 true [SHIFT 13131]; A 1691 1 true [SHIFT 455];
   A 1693 1 true [SHIFT 13178]; A 1695 1 true [SHIFT 12780]; A 1697 1 true [SHIFT 12856];
   A 1699 1 true [SHIFT 458]; A 1701 1 true [SHIFT 12876]; A 1703 1 true [SHIFT 459];
   A 1705 1 true [SHIFT 12898]; A 1707 1 true [SHIFT 460]; A 1709 1 true [SHIFT 12910];
   A 1711 1 true [SHIFT 11451]; A 1713 1 true [SHIFT 11463]; A 1715 1 true [SHIFT 463];
   A 1717 1 true [SHIFT 11466]; A 1719 1 true [SHIFT 464]; A 1721 1 true [SHIFT 11472];
   A 1723 1 true [SHIFT 465]; A 1725 1 true [SHIFT 11474];
   A 1727 1 true [REDUCE sym__declProc 5 0 66];
   A 1729 2 true [REDUCE sym__declProc 5 0 66; SHIFT 4114];
   A 1732 1 false [REDUCE sym__declProc 5 0 66];
   A 1734 2 true [REDUCE sym__declProc 5 0 66; SHIFT 4093];
   A 1737 2 true [REDUCE sym__declProc 5 0 66; SHIFT 12561];
   A 1740 2 true [REDUCE sym__declProc 5 0 66; SHIFT 4468];
   A 1743 2 true [REDUCE sym__declProc 5 0 66; SHIFT 12824];
   A 1746 2 true [REDUCE sym__declProc 5 0 66; SHIFT 4077];
   A 1749 2 true [REDUCE sym__declProc 5 0 66; SHIFT 3867];
   A 1752 2 true [REDUCE sym__declProc 5 0 66; SHIFT 4478];
   A 1755 2 true [REDUCE sym__declProc 5 0 66; SHIFT 14986];
   A 1758 1 true [REDUCE sym__declProc 5 0 68];
   A 1760 2 true [REDUCE sym__declProc 5 0 68; SHIFT 4114];
   A 1763 1 false [REDUCE sym__declProc 5 0 68];
   A 1765 2 true [REDUCE sym__declProc 5 0 68; SHIFT 4093];
   A 1768 2 true [REDUCE sym__declProc 5 0 68; SHIFT 12561];
   A 1771 2 true [REDUCE sym__declProc 5 0 68; SHIFT 4468];
   A 1774 2 true [REDUCE sym__declProc 5 0 68; SHIFT 12824];
   A 1777 2 true [REDUCE sym__declProc 5 0 68; SHIFT 4077];
   A 1780 2 true [REDUCE sym__declProc 5 0 68; SHIFT 3867];
   A 1783 2 true [REDUCE sym__declProc 5 0 68; SHIFT 4478];
   A 1786 2 true [REDUCE sym__declProc 5 0 68; SHIFT 14986]; A 1789 1 true [SHIFT 13056];
   A 1791 1 true [REDUCE sym__declProc 5 0 70];
   A 1793 2 true [REDUCE sym__declProc 5 0 70; SHIFT 4114];
   A 1796 1 false [REDUCE sym__declProc 5 0 70];
   A 1798 2 true [REDUCE sym__declProc 5 0 70; SHIFT 4093];
   A 1801 2 true [REDUCE sym__declProc 5 0 70; SHIFT 12561];
   A 1804 2 true [REDUCE sym__declProc 5 0 70; SHIFT 4468];
   A 1807 2 true [REDUCE sym__declProc 5 0 70; SHIFT 12824];
   A 1810 2 true [REDUCE sym__declProc 5 0 70; SHIFT 4077];
   A 1813 2 true [REDUCE sym__declProc 5 0 70; SHIFT 3867];
   A 1816 2 true [REDUCE sym__declProc 5 0 70; SHIFT 4478];
   A 1819 2 true [REDUCE sym__declProc 5 0 70; SHIFT 14986]; A 1822 1 true [SHIFT 13218];
   A 1824 1 true [SHIFT 469]; A 1826 1 true [SHIFT 13251]; A 1828 1 true [SHIFT 470];
   A 1830 1 true [SHIFT 13372]; A 1832 1 true [SHIFT 471]; A 1834 1 true [SHIFT 13430];
   A 1836 1 true [REDUCE sym__declProc 5 0 71];
   A 1838 2 true [REDUCE sym__declProc 5 0 71; SHIFT 4114]
  ].

Definition ts_parse_actions_1841 : list (Z * list TSParseActionEntry) :=
  [
   A 1841 1 false [REDUCE sym__declProc 5 0 71];
   A 1843 2 true [REDUCE sym__declProc 5 0 71; SHIFT 4093];
   A 1846 2 true [REDUCE sym__declProc 5 0 71; SHIFT 12561];
   A 1849 2 true [REDUCE sym__declProc 5 0 71; SHIFT 4468];
   A 1852 2 true [REDUCE sym__declProc 5 0 71; SHIFT 12824];
   A 1855 2 true [REDUCE sym__declProc 5 0 71; SHIFT 4077];
   A 1858 2 true [REDUCE sym__declProc 5 0 71; SHIFT 3867];
   A 1861 2 true [REDUCE sym__declProc 5 0 71; SHIFT 4478];
   A 1864 2 true [REDUCE sym__declProc 5 0 71; SHIFT 14986]; A 1867 1 true [SHIFT 12596];
   A 1869 1 true [SHIFT 12615]; A 1871 1 true [SHIFT 474]; A 1873 1 true [SHIFT 12619];
   A 1875 1 true [SHIFT 475]; A 1877 1 true [SHIFT 12628]; A 1879 1 true [SHIFT 477];
   A 1881 1 true [SHIFT 12632]; A 1883 1 true [REDUCE sym__declProc 6 0 110];
   A 1885 2 true [REDUCE sym__declProc 6 0 110; SHIFT 4114];
   A 1888 1 false [REDUCE sym__declProc 6 0 110];
   A 1890 2 true [REDUCE sym__declProc 6 0 110; SHIFT 4093];
   A 1893 2 true [REDUCE sym__declProc 6 0 110; SHIFT 12561];
   A 1896 2 true [REDUCE sym__declProc 6 0 110; SHIFT 4468];
   A 1899 2 true [REDUCE sym__declProc 6 0 110; SHIFT 12824];
   A 1902 2 true [REDUCE sym__declProc 6 0 110; SHIFT 4077];
   A 1905 2 true [REDUCE sym__declProc 6 0 110; SHIFT 3867];
   A 1908 2 true [REDUCE sym__declProc 6 0 110; SHIFT 4478];
   A 1911 2 true [REDUCE sym__declProc 6 0 110; SHIFT 14986];
   A 1914 1 true [REDUCE sym__declProc 6 0 111];
   A 1916 2 true [REDUCE sym__declProc 6 0 111; SHIFT 4114];
   A 1919 1 false [REDUCE sym__declProc 6 0 111];
   A 1921 2 true [REDUCE sym__declProc 6 0 111; SHIFT 4093];
   A 1924 2 true [REDUCE sym__declProc 6 0 111; SHIFT 12561];
   A 1927 2 true [REDUCE sym__declProc 6 0 111; SHIFT 4468];
   A 1930 2 true [REDUCE sym__declProc 6 0 111; SHIFT 12824];
   A 1933 2 true [REDUCE sym__declProc 6 0 111; SHIFT 4077];
   A 1936 2 true [REDUCE sym__declProc 6 0 111; SHIFT 3867];
   A 1939 2 true [REDUCE sym__declProc 6 0 111; SHIFT 4478];
   A 1942 2 true [REDUCE sym__declProc 6 0 111; SHIFT 14986]; A 1945 1 true [SHIFT 13036];
   A 1947 1 true [REDUCE sym__declProc 6 0 112];
   A 1949 2 true [REDUCE sym__declProc 6 0 112; SHIFT 4114];
   A 1952 1 false [REDUCE sym__declProc 6 0 112];
   A 1954 2 true [REDUCE sym__declProc 6 0 112; SHIFT 4093];
   A 1957 2 true [REDUCE sym__declProc 6 0 112; SHIFT 12561];
   A 1960 2 true [REDUCE sym__declProc 6 0 112; SHIFT 4468];
   A 1963 2 true [REDUCE sym__declProc 6 0 112; SHIFT 12824];
   A 1966 2 true [REDUCE sym__declProc 6 0 112; SHIFT 4077];
   A 1969 2 true [REDUCE sym__declProc 6 0 112; SHIFT 3867];
   A 1972 2 true [REDUCE sym__declProc 6 0 112; SHIFT 4478];
   A 1975 2 true [REDUCE sym__declProc 6 0 112; SHIFT 14986]; A 1978 1 true [SHIFT 13087];
   A 1980 1 true [SHIFT 483]; A 1982 1 true [SHIFT 13098]; A 1984 1 true [SHIFT 485];
   A 1986 1 true [SHIFT 13135]; A 1988 1 true [SHIFT 487]; A 1990 1 true [SHIFT 13155];
   A 1992 1 true [REDUCE sym__declProc 6 0 113];
   A 1994 2 true [REDUCE sym__declProc 6 0 113; SHIFT 4114];
   A 1997 1 false [REDUCE sym__declProc 6 0 113];
   A 1999 2 true [REDUCE sym__declProc 6 0 113; SHIFT 4093];
   A 2002 2 true [REDUCE sym__declProc 6 0 113; SHIFT 12561];
   A 2005 2 true [REDUCE sym__declProc 6 0 113; SHIFT 4468];
   A 2008 2 true [REDUCE sym__declProc 6 0 113; SHIFT 12824];
   A 2011 2 true [REDUCE sym__declProc 6 0 113; SHIFT 4077];
   A 2014 2 true [REDUCE sym__declProc 6 0 113; SHIFT 3867];
   A 2017 2 true [REDUCE sym__declProc 6 0 113; SHIFT 4478];
   A 2020 2 true [REDUCE sym__declProc 6 0 113; SHIFT 14986];
   A 2023 1 true [REDUCE sym__declProc 6 0 114];
   A 2025 2 true [REDUCE sym__declProc 6 0 114; SHIFT 4114];
   A 2028 1 false [REDUCE sym__declProc 6 0 114];
   A 2030 2 true [REDUCE sym__declProc 6 0 114; SHIFT 4093];
   A 2033 2 true [REDUCE sym__declProc 6 0 114; SHIFT 12561];
   A 2036 2 true [REDUCE sym__declProc 6 0 114; SHIFT 4468];
   A 2039 2 true [REDUCE sym__declProc 6 0 114; SHIFT 12824];
   A 2042 2 true [REDUCE sym__declProc 6 0 114; SHIFT 4077];
   A 2045 2 true [REDUCE sym__declProc 6 0 114; SHIFT 3867];
   A 2048 2 true [REDUCE sym__declProc 6 0 114; SHIFT 4478];
   A 2051 2 true [REDUCE sym__declProc 6 0 114; SHIFT 14986]; A 2054 1 true [SHIFT 12129];
   A 2056 1 true [REDUCE sym__declProc 6 0 115];
   A 2058 2 true [REDUCE sym__declProc 6 0 115; SHIFT 4114];
   A 2061 1 false [REDUCE sym__declProc 6 0 115];
   A 2063 2 true [REDUCE sym__declProc 6 0 115; SHIFT 4093];
   A 2066 2 true [REDUCE sym__declProc 6 0 115; SHIFT 12561];
   A 2069 2 true [REDUCE sym__declProc 6 0 115; SHIFT 4468];
   A 2072 2 true [REDUCE sym__declProc 6 0 115; SHIFT 12824];
   A 2075 2 true [REDUCE sym__declProc 6 0 115; SHIFT 4077];
   A 2078 2 true [REDUCE sym__declProc 6 0 115; SHIFT 3867];
   A 2081 2 true [REDUCE sym__declProc 6 0 115; SHIFT 4478];
   A 2084 2 true [REDUCE sym__declProc 6 0 115; SHIFT 14986]; A 2087 1 true [SHIFT 12151];
   A 2089 1 true [SHIFT 495]; A 2091 1 true [SHIFT 12157]; A 2093 1 true [SHIFT 496];
   A 2095 1 true [SHIFT 12172]; A 2097 1 true [SHIFT 498]; A 2099 1 true [SHIFT 12177];
   A 2101 1 true [REDUCE sym__declProc 6 0 116];
   A 2103 2 true [REDUCE sym__declProc 6 0 116; SHIFT 4114];
   A 2106 1 false [REDUCE sym__declProc 6 0 116];
   A 2108 2 true [REDUCE sym__declProc 6 0 116; SHIFT 4093];
   A 2111 2 true [REDUCE sym__declProc 6 0 116; SHIFT 12561];
   A 2114 2 true [REDUCE sym__declProc 6 0 116; SHIFT 4468];
   A 2117 2 true [REDUCE sym__declProc 6 0 116; SHIFT 12824];
   A 2120 2 true [REDUCE sym__declProc 6 0 116; SHIFT 4077];
   A 2123 2 true [REDUCE sym__declProc 6 0 116; SHIFT 3867];
   A 2126 2 true [REDUCE sym__declProc 6 0 116; SHIFT 4478];
   A 2129 2 true [REDUCE sym__declProc 6 0 116; SHIFT 14986]; A 2132 1 true [SHIFT 13400];
   A 2134 1 true [SHIFT 13441]; A 2136 1 true [SHIFT 504]; A 2138 1 true [SHIFT 13455];
   A 2140 1 true [SHIFT 505]; A 2142 1 true [SHIFT 13484]; A 2144 1 true [SHIFT 507];
   A 2146 1 true [SHIFT 13496]; A 2148 1 true [SHIFT 13551]; A 2150 1 true [SHIFT 13590];
   A 2152 1 true [SHIFT 511]; A 2154 1 true [SHIFT 13605]; A 2156 1 true [SHIFT 512];
   A 2158 1 true [SHIFT 13636]; A 2160 1 true [SHIFT 514]; A 2162 1 true [SHIFT 13647];
   A 2164 1 true [SHIFT 13731]; A 2166 1 true [SHIFT 13803]; A 2168 1 true [SHIFT 447];
   A 2170 1 true [SHIFT 13823]; A 2172 1 true [SHIFT 518]; A 2174 1 true [SHIFT 13869];
   A 2176 1 true [SHIFT 519]; A 2178 1 true [SHIFT 13888]; A 2180 1 true [SHIFT 14033];
   A 2182 1 true [SHIFT 14072]; A 2184 1 true [SHIFT 524]; A 2186 1 true [SHIFT 14081];
   A 2188 1 true [SHIFT 525]; A 2190 1 true [SHIFT 14106]; A 2192 1 true [SHIFT 527];
   A 2194 1 true [SHIFT 14116]; A 2196 1 true [SHIFT 13327]; A 2198 1 true [SHIFT 13597];
   A 2200 1 true [SHIFT 532]; A 2202 1 true [SHIFT 13060];
   A 2204 1 true [REDUCE sym__declProc 8 0 224];
   A 2206 2 true [REDUCE sym__declProc 8 0 224; SHIFT 4114];
   A 2209 1 false [REDUCE sym__declProc 8 0 224];
   A 2211 2 true [REDUCE sym__declProc 8 0 224; SHIFT 4093];
   A 2214 2 true [REDUCE sym__declProc 8 0 224; SHIFT 12561];
   A 2217 2 true [REDUCE sym__declProc 8 0 224; SHIFT 4468];
   A 2220 2 true [REDUCE sym__declProc 8 0 224; SHIFT 12824];
   A 2223 2 true [REDUCE sym__declProc 8 0 224; SHIFT 4077];
   A 2226 2 true [REDUCE sym__declProc 8 0 224; SHIFT 3867];
   A 2229 2 true [REDUCE sym__declProc 8 0 224; SHIFT 4478];
   A 2232 2 true [REDUCE sym__declProc 8 0 224; SHIFT 14986]; A 2235 1 true [SHIFT 535];
   A 2237 1 true [SHIFT 13837]; A 2239 1 true [SHIFT 11371]; A 2241 1 true [SHIFT 11429];
   A 2243 1 true [SHIFT 540]; A 2245 1 true [SHIFT 11448]; A 2247 1 true [SHIFT 541];
   A 2249 1 true [SHIFT 11491]; A 2251 1 true [SHIFT 543]; A 2253 1 true [SHIFT 11501];
   A 2255 1 true [SHIFT 13700]; A 2257 1 true [SHIFT 13736]; A 2259 1 true [SHIFT 547];
   A 2261 1 true [SHIFT 13403]; A 2263 1 true [SHIFT 548]; A 2265 1 true [SHIFT 13448];
   A 2267 1 true [SHIFT 550]; A 2269 1 true [SHIFT 13275]; A 2271 1 true [SHIFT 13784];
   A 2273 1 true [REDUCE sym__declProc 6 0 124];
   A 2275 2 true [REDUCE sym__declProc 6 0 124; SHIFT 4114];
   A 2278 1 false [REDUCE sym__declProc 6 0 124];
   A 2280 2 true [REDUCE sym__declProc 6 0 124; SHIFT 4093];
   A 2283 2 true [REDUCE sym__declProc 6 0 124; SHIFT 12561];
   A 2286 2 true [REDUCE sym__declProc 6 0 124; SHIFT 4468];
   A 2289 2 true [REDUCE sym__declProc 6 0 124; SHIFT 12824];
   A 2292 2 true [REDUCE sym__declProc 6 0 124; SHIFT 4077];
   A 2295 2 true [REDUCE sym__declProc 6 0 124; SHIFT 3867];
   A 2298 2 true [REDUCE sym__declProc 6 0 124; SHIFT 4478];
   A 2301 2 true [REDUCE sym__declProc 6 0 124; SHIFT 14986]; A 2304 1 true [SHIFT 13945];
   A 2306 1 true [SHIFT 555]; A 2308 1 true [SHIFT 14032]; A 2310 1 true [SHIFT 557];
   A 2312 1 true [SHIFT 13595]; A 2314 1 true [SHIFT 558]; A 2316 1 true [SHIFT 14042];
   A 2318 1 true [REDUCE sym__declProc 6 0 125];
   A 2320 2 true [REDUCE sym__declProc 6 0 125; SHIFT 4114];
   A 2323 1 false [REDUCE sym__declProc 6 0 125];
   A 2325 2 true [REDUCE sym__declProc 6 0 125; SHIFT 4093];
   A 2328 2 true [REDUCE sym__declProc 6 0 125; SHIFT 12561];
   A 2331 2 true [REDUCE sym__declProc 6 0 125; SHIFT 4468];
   A 2334 2 true [REDUCE sym__declProc 6 0 125; SHIFT 12824];
   A 2337 2 true [REDUCE sym__declProc 6 0 125; SHIFT 4077];
   A 2340 2 true [REDUCE sym__declProc 6 0 125; SHIFT 3867];
   A 2343 2 true [REDUCE sym__declProc 6 0 125; SHIFT 4478];
   A 2346 2 true [REDUCE sym__declProc 6 0 125; SHIFT 14986]; A 2349 1 true [SHIFT 13013];
   A 2351 1 true [REDUCE sym__declProc 6 0 129];
   A 2353 2 true [REDUCE sym__declProc 6 0 129; SHIFT 4114];
   A 2356 1 false [REDUCE sym__declProc 6 0 129];
   A 2358 2 true [REDUCE sym__declProc 6 0 129; SHIFT 4093];
   A 2361 2 true [REDUCE sym__declProc 6 0 129; SHIFT 12561];
   A 2364 2 true [REDUCE sym__declProc 6 0 129; SHIFT 4468];
   A 2367 2 true [REDUCE sym__declProc 6 0 129; SHIFT 12824];
   A 2370 2 true [REDUCE sym__declProc 6 0 129; SHIFT 4077];
   A 2373 2 true [REDUCE sym__declProc 6 0 129; SHIFT 3867];
   A 2376 2 true [REDUCE sym__declProc 6 0 129; SHIFT 4478];
   A 2379 2 true [REDUCE sym__declProc 6 0 129; SHIFT 14986]; A 2382 1 true [SHIFT 13326];
   A 2384 1 true [SHIFT 564]; A 2386 1 true [SHIFT 13362]; A 2388 1 true [SHIFT 565];
   A 2390 1 true [SHIFT 13541]; A 2392 1 true [SHIFT 566]; A 2394 1 true [SHIFT 13577];
   A 2396 1 true [REDUCE sym__declProc 6 0 130];
   A 2398 2 true [REDUCE sym__declProc 6 0 130; SHIFT 4114];
   A 2401 1 false [REDUCE sym__declProc 6 0 130];
   A 2403 2 true [REDUCE sym__declProc 6 0 130; SHIFT 4093];
   A 2406 2 true [REDUCE sym__declProc 6 0 130; SHIFT 12561];
   A 2409 2 true [REDUCE sym__declProc 6 0 130; SHIFT 4468];
   A 2412 2 true [REDUCE sym__declProc 6 0 130; SHIFT 12824];
   A 2415 2 true [REDUCE sym__declProc 6 0 130; SHIFT 4077];
   A 2418 2 true [REDUCE sym__declProc 6 0 130; SHIFT 3867];
   A 2421 2 true [REDUCE sym__declProc 6 0 130; SHIFT 4478];
   A 2424 2 true [REDUCE sym__declProc 6 0 130; SHIFT 14986]; A 2427 1 true [SHIFT 14055];
   A 2429 1 true [SHIFT 13715]; A 2431 1 true [SHIFT 675]; A 2433 1 true [SHIFT 13114];
   A 2435 1 true [SHIFT 572]; A 2437 1 true [SHIFT 13190]; A 2439 1 true [SHIFT 574];
   A 2441 1 true [SHIFT 13508]; A 2443 1 true [SHIFT 13250]; A 2445 1 true [SHIFT 13168];
   A 2447 1 true [SHIFT 580]; A 2449 1 true [SHIFT 13299]; A 2451 1 true [SHIFT 582];
   A 2453 1 true [SHIFT 13615]; A 2455 1 true [SHIFT 584]; A 2457 1 true [SHIFT 13650];
   A 2459 1 true [SHIFT 4343]; A 2461 1 true [SHIFT 15301]; A 2463 1 true [SHIFT 15343];
   A 2465 1 true [SHIFT 613]; A 2467 1 true [SHIFT 15895]; A 2469 1 true [SHIFT 615];
   A 2471 1 true [SHIFT 14456]; A 2473 1 true [SHIFT 616]; A 2475 1 true [SHIFT 14685];
   A 2477 1 true [SHIFT 4385]; A 2479 1 true [REDUCE sym__declProc 7 0 165];
   A 2481 2 true [REDUCE sym__declProc 7 0 165; SHIFT 4114];
   A 2484 1 false [REDUCE sym__declProc 7 0 165];
   A 2486 2 true [REDUCE sym__declProc 7 0 165; SHIFT 4093];
   A 2489 2 true [REDUCE sym__declProc 7 0 165; SHIFT 12561];
   A 2492 2 true [REDUCE sym__declProc 7 0 165; SHIFT 4468];
   A 2495 2 true [REDUCE sym__declProc 7 0 165; SHIFT 12824];
   A 2498 2 true [REDUCE sym__declProc 7 0 165; SHIFT 4077];
   A 2501 2 true [REDUCE sym__declProc 7 0 165; SHIFT 3867];
   A 2504 2 true [REDUCE sym__declProc 7 0 165; SHIFT 4478];
   A 2507 2 true [REDUCE sym__declProc 7 0 165; SHIFT 14986];
   A 2510 1 true [REDUCE sym__declProc 7 0 166];
   A 2512 2 true [REDUCE sym__declProc 7 0 166; SHIFT 4114];
   A 2515 1 false [REDUCE sym__declProc 7 0 166];
   A 2517 2 true [REDUCE sym__declProc 7 0 166; SHIFT 4093];
   A 2520 2 true [REDUCE sym__declProc 7 0 166; SHIFT 12561];
   A 2523 2 true [REDUCE sym__declProc 7 0 166; SHIFT 4468];
   A 2526 2 true [REDUCE sym__declProc 7 0 166; SHIFT 12824];
   A 2529 2 true [REDUCE sym__declProc 7 0 166; SHIFT 4077];
   A 2532 2 true [REDUCE sym__declProc 7 0 166; SHIFT 3867];
   A 2535 2 true [REDUCE sym__declProc 7 0 166; SHIFT 4478];
   A 2538 2 true [REDUCE sym__declProc 7 0 166; SHIFT 14986]; A 2541 1 true [SHIFT 15994];
   A 2543 1 true [REDUCE sym__declProc 7 0 167];
   A 2545 2 true [REDUCE sym__declProc 7 0 167; SHIFT 4114];
   A 2548 1 false [REDUCE sym__declProc 7 0 167];
   A 2550 2 true [REDUCE sym__declProc 7 0 167; SHIFT 4093];
   A 2553 2 true [REDUCE sym__declProc 7 0 167; SHIFT 12561];
   A 2556 2 true [REDUCE sym__declProc 7 0 167; SHIFT 4468];
   A 2559 2 true [REDUCE sym__declProc 7 0 167; SHIFT 12824];
   A 2562 2 true [REDUCE sym__declProc 7 0 167; SHIFT 4077];
   A 2565 2 true [REDUCE sym__declProc 7 0 167; SHIFT 3867];
   A 2568 2 true [REDUCE sym__declProc 7 0 167; SHIFT 4478];
   A 2571 2 true [REDUCE sym__declProc 7 0 167; SHIFT 14986]; A 2574 1 true [SHIFT 14400];
   A 2576 1 true [SHIFT 621]; A 2578 1 true [SHIFT 14575]; A 2580 1 true [SHIFT 623];
   A 2582 1 true [SHIFT 14753]; A 2584 1 true [SHIFT 625]; A 2586 1 true [SHIFT 14799];
   A 2588 1 true [SHIFT 4404]; A 2590 1 true [REDUCE sym__declProc 7 0 168];
   A 2592 2 true [REDUCE sym__declProc 7 0 168; SHIFT 4114];
   A 2595 1 false [REDUCE sym__declProc 7 0 168];
   A 2597 2 true [REDUCE sym__declProc 7 0 168; SHIFT 4093];
   A 2600 2 true [REDUCE sym__declProc 7 0 168; SHIFT 12561];
   A 2603 2 true [REDUCE sym__declProc 7 0 168; SHIFT 4468];
   A 2606 2 true [REDUCE sym__declProc 7 0 168; SHIFT 12824];
   A 2609 2 true [REDUCE sym__declProc 7 0 168; SHIFT 4077];
   A 2612 2 true [REDUCE sym__declProc 7 0 168; SHIFT 3867];
   A 2615 2 true [REDUCE sym__declProc 7 0 168; SHIFT 4478];
   A 2618 2 true [REDUCE sym__declProc 7 0 168; SHIFT 14986];
   A 2621 1 true [REDUCE sym__declProc 7 0 169];
   A 2623 2 true [REDUCE sym__declProc 7 0 169; SHIFT 4114];
   A 2626 1 false [REDUCE sym__declProc 7 0 169];
   A 2628 2 true [REDUCE sym__declProc 7 0 169; SHIFT 4093];
   A 2631 2 true [REDUCE sym__declProc 7 0 169; SHIFT 12561];
   A 2634 2 true [REDUCE sym__declProc 7 0 169; SHIFT 4468];
   A 2637 2 true [REDUCE sym__declProc 7 0 169; SHIFT 12824];
   A 2640 2 true [REDUCE sym__declProc 7 0 169; SHIFT 4077];
   A 2643 2 true [REDUCE sym__declProc 7 0 169; SHIFT 3867];
   A 2646 2 true [REDUCE sym__declProc 7 0 169; SHIFT 4478];
   A 2649 2 true [REDUCE sym__declProc 7 0 169; SHIFT 14986];
   A 2652 1 true [REDUCE sym__declProc 7 0 170];
   A 2654 2 true [REDUCE sym__declProc 7 0 170; SHIFT 4114];
   A 2657 1 false [REDUCE sym__declProc 7 0 170];
   A 2659 2 true [REDUCE sym__declProc 7 0 170; SHIFT 4093];
   A 2662 2 true [REDUCE sym__declProc 7 0 170; SHIFT 12561];
   A 2665 2 true [REDUCE sym__declProc 7 0 170; SHIFT 4468];
   A 2668 2 true [REDUCE sym__declProc 7 0 170; SHIFT 12824];
   A 2671 2 true [REDUCE sym__declProc 7 0 170; SHIFT 4077];
   A 2674 2 true [REDUCE sym__declProc 7 0 170; SHIFT 3867];
   A 2677 2 true [REDUCE sym__declProc 7 0 170; SHIFT 4478];
   A 2680 2 true [REDUCE sym__declProc 7 0 170; SHIFT 14986]; A 2683 1 true [SHIFT 15474];
   A 2685 1 true [REDUCE sym__declProc 7 0 171];
   A 2687 2 true [REDUCE sym__declProc 7 0 171; SHIFT 4114];
   A 2690 1 false [REDUCE sym__declProc 7 0 171];
   A 2692 2 true [REDUCE sym__declProc 7 0 171; SHIFT 4093];
   A 2695 2 true [REDUCE sym__declProc 7 0 171; SHIFT 12561];
   A 2698 2 true [REDUCE sym__declProc 7 0 171; SHIFT 4468];
   A 2701 2 true [REDUCE sym__declProc 7 0 171; SHIFT 12824];
   A 2704 2 true [REDUCE sym__declProc 7 0 171; SHIFT 4077];
   A 2707 2 true [REDUCE sym__declProc 7 0 171; SHIFT 3867];
   A 2710 2 true [REDUCE sym__declProc 7 0 171; SHIFT 4478];
   A 2713 2 true [REDUCE sym__declProc 7 0 171; SHIFT 14986]; A 2716 1 true [SHIFT 15695];
   A 2718 1 true [SHIFT 629]; A 2720 1 true [SHIFT 15810]; A 2722 1 true [SHIFT 630];
   A 2724 1 true [SHIFT 15906]; A 2726 1 true [SHIFT 632]; A 2728 1 true [SHIFT 15934];
   A 2730 1 true [SHIFT 4425]; A 2732 1 true [REDUCE sym__declProc 7 0 172];
   A 2734 2 true [REDUCE sym__declProc 7 0 172; SHIFT 4114];
   A 2737 1 false [REDUCE sym__declProc 7 0 172];
   A 2739 2 true [REDUCE sym__declProc 7 0 172; SHIFT 4093];
   A 2742 2 true [REDUCE sym__declProc 7 0 172; SHIFT 12561];
   A 2745 2 true [REDUCE sym__declProc 7 0 172; SHIFT 4468];
   A 2748 2 true [REDUCE sym__declProc 7 0 172; SHIFT 12824];
   A 2751 2 true [REDUCE sym__declProc 7 0 172; SHIFT 4077];
   A 2754 2 true [REDUCE sym__declProc 7 0 172; SHIFT 3867];
   A 2757 2 true [REDUCE sym__declProc 7 0 172; SHIFT 4478];
   A 2760 2 true [REDUCE sym__declProc 7 0 172; SHIFT 14986]; A 2763 1 true [SHIFT 14397];
   A 2765 1 true [SHIFT 14532]; A 2767 1 true [SHIFT 638]; A 2769 1 true [SHIFT 14623];
   A 2771 1 true [SHIFT 639]; A 2773 1 true [SHIFT 14671]; A 2775 1 true [SHIFT 641];
   A 2777 1 true [SHIFT 14684]; A 2779 1 true [SHIFT 4446]; A 2781 1 true [SHIFT 14958];
   A 2783 1 true [SHIFT 15048]; A 2785 1 true [SHIFT 643]; A 2787 1 true [SHIFT 15100];
   A 2789 1 true [SHIFT 644]; A 2791 1 true [SHIFT 15136]; A 2793 1 true [SHIFT 646];
   A 2795 1 true [SHIFT 15143]; A 2797 1 true [SHIFT 4461]; A 2799 1 true [SHIFT 15288];
   A 2801 1 true [SHIFT 15350]; A 2803 1 true [SHIFT 650]; A 2805 1 true [SHIFT 15395];
   A 2807 1 true [SHIFT 652]; A 2809 1 true [SHIFT 15459]; A 2811 1 true [SHIFT 654];
   A 2813 1 true [SHIFT 15465]; A 2815 1 true [SHIFT 4470]; A 2817 1 true [SHIFT 15692];
   A 2819 1 true [SHIFT 15774]; A 2821 1 true [SHIFT 657]; A 2823 1 true [SHIFT 15814];
   A 2825 1 true [SHIFT 659]; A 2827 1 true [SHIFT 15832]; A 2829 1 true [SHIFT 660];
   A 2831 1 true [SHIFT 15836]; A 2833 1 true [SHIFT 4483]; A 2835 1 true [SHIFT 4498];
   A 2837 1 true [SHIFT 4507]; A 2839 1 true [SHIFT 4981];
   A 2841 1 true [REDUCE sym__declProc 7 0 180];
   A 2843 2 true [REDUCE sym__declProc 7 0 180; SHIFT 4114];
   A 2846 1 false [REDUCE sym__declProc 7 0 180];
   A 2848 2 true [REDUCE sym__declProc 7 0 180; SHIFT 4093];
   A 2851 2 true [REDUCE sym__declProc 7 0 180; SHIFT 12561];
   A 2854 2 true [REDUCE sym__declProc 7 0 180; SHIFT 4468];
   A 2857 2 true [REDUCE sym__declProc 7 0 180; SHIFT 12824];
   A 2860 2 true [REDUCE sym__declProc 7 0 180; SHIFT 4077];
   A 2863 2 true [REDUCE sym__declProc 7 0 180; SHIFT 3867];
   A 2866 2 true [REDUCE sym__declProc 7 0 180; SHIFT 4478];
   A 2869 2 true [REDUCE sym__declProc 7 0 180; SHIFT 14986]; A 2872 1 true [SHIFT 4541];
   A 2874 1 true [REDUCE sym__declProc 7 0 185];
   A 2876 2 true [REDUCE sym__declProc 7 0 185; SHIFT 4114];
   A 2879 1 false [REDUCE sym__declProc 7 0 185];
   A 2881 2 true [REDUCE sym__declProc 7 0 185; SHIFT 4093];
   A 2884 2 true [REDUCE sym__declProc 7 0 185; SHIFT 12561];
   A 2887 2 true [REDUCE sym__declProc 7 0 185; SHIFT 4468];
   A 2890 2 true [REDUCE sym__declProc 7 0 185; SHIFT 12824];
   A 2893 2 true [REDUCE sym__declProc 7 0 185; SHIFT 4077];
   A 2896 2 true [REDUCE sym__declProc 7 0 185; SHIFT 3867];
   A 2899 2 true [REDUCE sym__declProc 7 0 185; SHIFT 4478];
   A 2902 2 true [REDUCE sym__declProc 7 0 185; SHIFT 14986]; A 2905 1 true [SHIFT 4551];
   A 2907 1 true [REDUCE sym__declProc 7 0 186];
   A 2909 2 true [REDUCE sym__declProc 7 0 186; SHIFT 4114];
   A 2912 1 false [REDUCE sym__declProc 7 0 186];
   A 2914 2 true [REDUCE sym__declProc 7 0 186; SHIFT 4093];
   A 2917 2 true [REDUCE sym__declProc 7 0 186; SHIFT 12561];
   A 2920 2 true [REDUCE sym__declProc 7 0 186; SHIFT 4468];
   A 2923 2 true [REDUCE sym__declProc 7 0 186; SHIFT 12824];
   A 2926 2 true [REDUCE sym__declProc 7 0 186; SHIFT 4077];
   A 2929 2 true [REDUCE sym__declProc 7 0 186; SHIFT 3867];
   A 2932 2 true [REDUCE sym__declProc 7 0 186; SHIFT 4478];
   A 2935 2 true [REDUCE sym__declProc 7 0 186; SHIFT 14986]; A 2938 1 true [SHIFT 4561];
   A 2940 1 true [SHIFT 4568]; A 2942 1 true [SHIFT 4584]; A 2944 1 true [SHIFT 4598];
   A 2946 1 true [SHIFT 4608]; A 2948 1 true [SHIFT 4617]; A 2950 1 true [SHIFT 4624];
   A 2952 1 true [SHIFT 4630]; A 2954 1 true [SHIFT 4639]; A 2956 1 true [SHIFT 4651];
   A 2958 1 true [SHIFT 4658]; A 2960 1 true [SHIFT 4664]; A 2962 1 true [SHIFT 4668];
   A 2964 1 true [SHIFT 4680]; A 2966 1 true [SHIFT 4689];
   A 2968 1 true [REDUCE sym__declProc 8 0 218];
   A 2970 2 true [REDUCE sym__declProc 8 0 218; SHIFT 4114];
   A 2973 1 false [REDUCE sym__declProc 8 0 218];
   A 2975 2 true [REDUCE sym__declProc 8 0 218; SHIFT 4093];
   A 2978 2 true [REDUCE sym__declProc 8 0 218; SHIFT 12561];
   A 2981 2 true [REDUCE sym__declProc 8 0 218; SHIFT 4468];
   A 2984 2 true [REDUCE sym__declProc 8 0 218; SHIFT 12824];
   A 2987 2 true [REDUCE sym__declProc 8 0 218; SHIFT 4077];
   A 2990 2 true [REDUCE sym__declProc 8 0 218; SHIFT 3867];
   A 2993 2 true [REDUCE sym__declProc 8 0 218; SHIFT 4478];
   A 2996 2 true [REDUCE sym__declProc 8 0 218; SHIFT 14986]; A 2999 1 true [SHIFT 4740];
   A 3001 1 true [REDUCE sym__declProc 8 0 219];
   A 3003 2 true [REDUCE sym__declProc 8 0 219; SHIFT 4114];
   A 3006 1 false [REDUCE sym__declProc 8 0 219];
   A 3008 2 true [REDUCE sym__declProc 8 0 219; SHIFT 4093];
   A 3011 2 true [REDUCE sym__declProc 8 0 219; SHIFT 12561];
   A 3014 2 true [REDUCE sym__declProc 8 0 219; SHIFT 4468];
   A 3017 2 true [REDUCE sym__declProc 8 0 219; SHIFT 12824];
   A 3020 2 true [REDUCE sym__declProc 8 0 219; SHIFT 4077];
   A 3023 2 true [REDUCE sym__declProc 8 0 219; SHIFT 3867];
   A 3026 2 true [REDUCE sym__declProc 8 0 219; SHIFT 4478];
   A 3029 2 true [REDUCE sym__declProc 8 0 219; SHIFT 14986]; A 3032 1 true [SHIFT 4808];
   A 3034 1 true [REDUCE sym__declProc 8 0 220];
   A 3036 2 true [REDUCE sym__declProc 8 0 220; SHIFT 4114];
   A 3039 1 false [REDUCE sym__declProc 8 0 220];
   A 3041 2 true [REDUCE sym__declProc 8 0 220; SHIFT 4093];
   A 3044 2 true [REDUCE sym__declProc 8 0 220; SHIFT 12561];
   A 3047 2 true [REDUCE sym__declProc 8 0 220; SHIFT 4468];
   A 3050 2 true [REDUCE sym__declProc 8 0 220; SHIFT 12824];
   A 3053 2 true [REDUCE sym__declProc 8 0 220; SHIFT 4077];
   A 3056 2 true [REDUCE sym__declProc 8 0 220; SHIFT 3867];
   A 3059 2 true [REDUCE sym__declProc 8 0 220; SHIFT 4478];
   A 3062 2 true [REDUCE sym__declProc 8 0 220; SHIFT 14986]; A 3065 1 true [SHIFT 4842];
   A 3067 1 true [REDUCE sym__declProc 8 0 221];
   A 3069 2 true [REDUCE sym__declProc 8 0 221; SHIFT 4114];
   A 3072 1 false [REDUCE sym__declProc 8 0 221];
   A 3074 2 true [REDUCE sym__declProc 8 0 221; SHIFT 4093];
   A 3077 2 true [REDUCE sym__declProc 8 0 221; SHIFT 12561];
   A 3080 2 true [REDUCE sym__declProc 8 0 221; SHIFT 4468];
   A 3083 2 true [REDUCE sym__declProc 8 0 221; SHIFT 12824];
   A 3086 2 true [REDUCE sym__declProc 8 0 221; SHIFT 4077];
   A 3089 2 true [REDUCE sym__declProc 8 0 221; SHIFT 3867];
   A 3092 2 true [REDUCE sym__declProc 8 0 221; SHIFT 4478];
   A 3095 2 true [REDUCE sym__declProc 8 0 221; SHIFT 14986]; A 3098 1 true [SHIFT 4877];
   A 3100 1 true [REDUCE sym__declProc 8 0 222];
   A 3102 2 true [REDUCE sym__declProc 8 0 222; SHIFT 4114];
   A 3105 1 false [REDUCE sym__declProc 8 0 222];
   A 3107 2 true [REDUCE sym__declProc 8 0 222; SHIFT 4093];
   A 3110 2 true [REDUCE sym__declProc 8 0 222; SHIFT 12561];
   A 3113 2 true [REDUCE sym__declProc 8 0 222; SHIFT 4468];
   A 3116 2 true [REDUCE sym__declProc 8 0 222; SHIFT 12824];
   A 3119 2 true [REDUCE sym__declProc 8 0 222; SHIFT 4077];
   A 3122 2 true [REDUCE sym__declProc 8 0 222; SHIFT 3867];
   A 3125 2 true [REDUCE sym__declProc 8 0 222; SHIFT 4478];
   A 3128 2 true [REDUCE sym__declProc 8 0 222; SHIFT 14986]; A 3131 1 true [SHIFT 4907];
   A 3133 1 true [REDUCE sym__declProc 8 0 223];
   A 3135 2 true [REDUCE sym__declProc 8 0 223; SHIFT 4114];
   A 3138 1 false [REDUCE sym__declProc 8 0 223];
   A 3140 2 true [REDUCE sym__declProc 8 0 223; SHIFT 4093];
   A 3143 2 true [REDUCE sym__declProc 8 0 223; SHIFT 12561];
   A 3146 2 true [REDUCE sym__declProc 8 0 223; SHIFT 4468];
   A 3149 2 true [REDUCE sym__declProc 8 0 223; SHIFT 12824];
   A 3152 2 true [REDUCE sym__declProc 8 0 223; SHIFT 4077];
   A 3155 2 true [REDUCE sym__declProc 8 0 223; SHIFT 3867];
   A 3158 2 true [REDUCE sym__declProc 8 0 223; SHIFT 4478];
   A 3161 2 true [REDUCE sym__declProc 8 0 223; SHIFT 14986]; A 3164 1 true [SHIFT 4943];
   A 3166 1 true [SHIFT 533]; A 3168 1 true [SHIFT 13633]; A 3170 1 true [SHIFT 12493];
   A 3172 1 true [SHIFT 4409]; A 3174 1 true [SHIFT 12504]; A 3176 1 true [SHIFT 13200];
   A 3178 1 true [SHIFT 10382]; A 3180 1 true [SHIFT 13258]; A 3182 1 true [SHIFT 12913];
   A 3184 1 true [SHIFT 5724]; A 3186 1 true [SHIFT 12930]; A 3188 1 true [SHIFT 11475];
   A 3190 1 true [SHIFT 4530]; A 3192 1 true [SHIFT 11482]; A 3194 1 true [SHIFT 5725];
   A 3196 1 true [SHIFT 3764]; A 3198 1 false [SHIFT 5288]; A 3200 1 true [SHIFT 5959];
   A 3202 1 true [SHIFT 12136]; A 3204 1 false [SHIFT 6992]; A 3206 1 true [SHIFT 6992];
   A 3208 1 false [SHIFT 4285]; A 3210 1 true [SHIFT 4285]; A 3212 1 true [SHIFT 6884];
   A 3214 1 true [SHIFT 14424]; A 3216 1 true [SHIFT 6844]; A 3218 1 true [SHIFT 6842];
   A 3220 1 true [SHIFT 11381]; A 3222 1 true [SHIFT 467]; A 3224 1 true [SHIFT 5409];
   A 3226 1 true [SHIFT 14765]; A 3228 1 true [SHIFT 678];
   A 3230 1 true [REDUCE sym_ifTr 3 0 38]; A 3232 1 true [SHIFT 3782];
   A 3234 1 true [SHIFT 6301]; A 3236 1 true [SHIFT 13106]; A 3238 1 true [SHIFT 5126];
   A 3240 1 true [SHIFT 6850]; A 3242 1 true [SHIFT 2954]; A 3244 1 true [SHIFT 417];
   A 3246 1 true [SHIFT 15369]; A 3248 1 true [SHIFT 175]; A 3250 1 true [SHIFT 15710];
   A 3252 1 true [SHIFT 5069]; A 3254 1 true [SHIFT 4152]; A 3256 1 true [SHIFT 13454];
   A 3258 1 true [SHIFT 5597]; A 3260 1 true [SHIFT 13554]; A 3262 1 true [SHIFT 10391];
   A 3264 1 true [SHIFT 12635]; A 3266 1 true [SHIFT 5754]; A 3268 1 true [SHIFT 12649];
   A 3270 1 true [SHIFT 5735]; A 3272 1 true [REDUCE sym_whileTr 3 0 38];
   A 3274 1 true [SHIFT 5190]; A 3276 1 true [SHIFT 5738];
   A 3278 1 true [REDUCE sym_withTr 3 0 43]; A 3280 1 true [SHIFT 5795];
   A 3282 1 true [REDUCE sym_ifElseTr 4 0 38]; A 3284 1 true [SHIFT 5809];
   A 3286 1 true [REDUCE sym_withTr 4 0 89]; A 3288 1 true [SHIFT 5696];
   A 3290 1 true [REDUCE sym_forTr 5 0 133]; A 3292 1 true [SHIFT 13158];
   A 3294 1 true [SHIFT 5698]; A 3296 1 true [REDUCE sym_foreachTr 5 0 134];
   A 3298 1 true [SHIFT 4636]; A 3300 1 true [SHIFT 13181]; A 3302 1 true [SHIFT 5704];
   A 3304 1 true [REDUCE sym_ifElseTr 5 0 77]; A 3306 1 true [SHIFT 5626];
   A 3308 1 true [SHIFT 11416]; A 3310 1 true [SHIFT 545]; A 3312 1 true [SHIFT 5421];
   A 3314 1 true [SHIFT 3792]; A 3316 1 true [SHIFT 13469]; A 3318 1 true [SHIFT 5245];
   A 3320 1 true [SHIFT 3055]; A 3322 1 true [SHIFT 428]; A 3324 1 true [SHIFT 162];
   A 3326 1 true [SHIFT 5183]; A 3328 1 true [SHIFT 4039]; A 3330 1 true [SHIFT 5627];
   A 3332 1 true [SHIFT 5632]; A 3334 1 true [SHIFT 5644]; A 3336 1 true [SHIFT 12178];
   A 3338 1 true [SHIFT 5646]; A 3340 1 true [SHIFT 4669]; A 3342 1 true [SHIFT 12186];
   A 3344 1 true [SHIFT 5647]; A 3346 1 true [SHIFT 5648]; A 3348 1 true [SHIFT 10371];
   A 3350 1 true [SHIFT 13498]; A 3352 1 true [SHIFT 10326]; A 3354 1 true [SHIFT 13511];
   A 3356 1 true [SHIFT 13552]; A 3358 1 true [SHIFT 13974]; A 3360 1 true [SHIFT 13649];
   A 3362 1 true [SHIFT 5768]; A 3364 1 true [SHIFT 13667];
   A 3366 1 true [REDUCE sym_declVars 1 0 0];
   A 3368 2 true [REDUCE sym_declVars 1 0 0; SHIFT 4017];
   A 3371 1 false [REDUCE sym_declVars 1 0 0];
   A 3373 2 true [REDUCE sym_declVars 1 0 0; SHIFT 1368];
   A 3376 2 true [REDUCE sym_declVars 1 0 0; SHIFT 11376];
   A 3379 2 true [REDUCE sym_declVars 1 0 0; SHIFT 13675]; A 3382 1 true [SHIFT 13893];
   A 3384 1 true [SHIFT 5688]; A 3386 1 true [SHIFT 13939]; A 3388 1 true [SHIFT 13640];
   A 3390 1 true [SHIFT 13997]; A 3392 1 true [SHIFT 3875]; A 3394 1 true [SHIFT 13337];
   A 3396 1 true [SHIFT 5590]; A 3398 1 true [SHIFT 482]; A 3400 1 true [SHIFT 3528];
   A 3402 1 true [SHIFT 12571]; A 3404 1 true [SHIFT 13073]; A 3406 1 true [SHIFT 3450];
   A 3408 1 true [SHIFT 13512];
   A 3410 3 true [REDUCE sym_declVar 5 0 147; REDUCE sym_declConst 5 0 147; REDUCE sym_declField 5 0 147];
   A 3414 4 true [REDUCE sym_declVar 5 0 147; REDUCE sym_declConst 5 0 147; REDUCE sym_declField 5 0 147; SHIFT 3655];
   A 3419 3 false [REDUCE sym_declVar 5 0 147; REDUCE sym_declConst 5 0 147; REDUCE sym_declField 5 0 147];
   A 3423 4 true [REDUCE sym_declVar 5 0 147; REDUCE sym_declConst 5 0 147; REDUCE sym_declField 5 0 147; SHIFT 12561];
   A 3428 4 true [REDUCE sym_declVar 5 0 147; REDUCE sym_declConst 5 0 147; REDUCE sym_declField 5 0 147; SHIFT 4468];
   A 3433 4 true [REDUCE sym_declVar 5 0 147; REDUCE sym_declConst 5 0 147; REDUCE sym_declField 5 0 147; SHIFT 12824];
   A 3438 1 true [SHIFT 3403];
   A 3440 4 true [REDUCE sym_declVar 5 0 147; REDUCE sym_declConst 5 0 147; REDUCE sym_declField 5 0 147; SHIFT 4077];
   A 3445 4 true [REDUCE sym_declVar 5 0 147; REDUCE sym_declConst 5 0 147; REDUCE sym_declField 5 0 147; SHIFT 3867];
   A 3450 4 true [REDUCE sym_declVar 5 0 147; REDUCE sym_declConst 5 0 147; REDUCE sym_declField 5 0 147; SHIFT 4478];
   A 3455 4 true [REDUCE sym_declVar 5 0 147; REDUCE sym_declConst 5 0 147; REDUCE sym_declField 5 0 147; SHIFT 14986];
   A 3460 1 true [SHIFT 11504]; A 3462 1 true [SHIFT 5716]; A 3464 1 true [SHIFT 11513];
   A 3466 1 true [SHIFT 13391]; A 3468 1 true [SHIFT 5621]; A 3470 1 true [SHIFT 14007];
   A 3472 1 true [SHIFT 12618]; A 3474 1 true [SHIFT 4199]; A 3476 1 true [SHIFT 12992];
   A 3478 1 true [SHIFT 2984]; A 3480 1 true [SHIFT 13067]; A 3482 1 true [SHIFT 10396];
   A 3484 1 true [SHIFT 13580]; A 3486 1 true [SHIFT 5811]; A 3488 1 true [SHIFT 13704];
   A 3490 1 true [SHIFT 13530]; A 3492 1 true [SHIFT 12789]; A 3494 1 true [SHIFT 13524];
   A 3496 1 true [SHIFT 3634]; A 3498 1 true [SHIFT 14102];
   A 3500 3 true [REDUCE sym_declVar 6 0 132; REDUCE sym_declConst 6 0 132; REDUCE sym_declField 6 0 132];
   A 3504 4 true [REDUCE sym_declVar 6 0 132; REDUCE sym_declConst 6 0 132; REDUCE sym_declField 6 0 132; SHIFT 3655];
   A 3509 3 false [REDUCE sym_declVar 6 0 132; REDUCE sym_declConst 6 0 132; REDUCE sym_declField 6 0 132];
   A 3513 4 true [REDUCE sym_declVar 6 0 132; REDUCE sym_declConst 6 0 132; REDUCE sym_declField 6 0 132; SHIFT 12561];
   A 3518 4 true [REDUCE sym_declVar 6 0 132; REDUCE sym_declConst 6 0 132; REDUCE sym_declField 6 0 132; SHIFT 4468];
   A 3523 4 true [REDUCE sym_declVar 6 0 132; REDUCE sym_declConst 6 0 132; REDUCE sym_declField 6 0 132; SHIFT 12824];
   A 3528 4 true [REDUCE sym_declVar 6 0 132; REDUCE sym_declConst 6 0 132; REDUCE sym_declField 6 0 132; SHIFT 4077];
   A 3533 4 true [REDUCE sym_declVar 6 0 132; REDUCE sym_declConst 6 0 132; REDUCE sym_declField 6 0 132; SHIFT 3867];
   A 3538 4 true [REDUCE sym_declVar 6 0 132; REDUCE sym_declConst 6 0 132; REDUCE sym_declField 6 0 132; SHIFT 4478];
   A 3543 4 true [REDUCE sym_declVar 6 0 132; REDUCE sym_declConst 6 0 132; REDUCE sym_declField 6 0 132; SHIFT 14986];
   A 3548 1 true [SHIFT 494]; A 3550 1 true [SHIFT 3934]; A 3552 1 true [SHIFT 13556];
   A 3554 1 true [SHIFT 12833]; A 3556 1 true [SHIFT 13655]; A 3558 1 true [SHIFT 3086];
   A 3560 1 true [SHIFT 13835]; A 3562 1 true [SHIFT 5630]; A 3564 1 true [SHIFT 3344];
   A 3566 1 true [SHIFT 5523]; A 3568 1 true [SHIFT 3461]; A 3570 1 true [SHIFT 3182];
   A 3572 1 true [SHIFT 5798]; A 3574 1 true [SHIFT 3602]; A 3576 1 true [SHIFT 5568];
   A 3578 1 true [SHIFT 4048]; A 3580 1 true [SHIFT 5676]; A 3582 1 true [SHIFT 5384];
   A 3584 1 true [SHIFT 4063]; A 3586 1 true [SHIFT 2851]; A 3588 1 true [SHIFT 3821];
   A 3590 1 true [SHIFT 3631]; A 3592 1 true [SHIFT 4273]; A 3594 1 true [SHIFT 5578];
   A 3596 1 true [SHIFT 4295]; A 3598 1 true [SHIFT 5572]; A 3600 1 true [SHIFT 2915];
   A 3602 1 true [SHIFT 5677]; A 3604 1 true [SHIFT 3397]; A 3606 1 true [SHIFT 3060];
   A 3608 1 true [SHIFT 3659]; A 3610 1 true [SHIFT 14408]; A 3612 1 true [SHIFT 14852];
   A 3614 2 true [REDUCE sym_declVars 1 0 0; SHIFT 13674]; A 3617 1 true [SHIFT 14739];
   A 3619 1 true [SHIFT 15599]; A 3621 1 true [SHIFT 11562]; A 3623 1 true [SHIFT 4316];
   A 3625 1 true [SHIFT 11594]; A 3627 1 true [SHIFT 14824]; A 3629 1 true [SHIFT 15178];
   A 3631 1 true [REDUCE sym_declVars 2 0 0];
   A 3633 2 true [REDUCE sym_declVars 2 0 0; SHIFT 4017];
   A 3636 1 false [REDUCE sym_declVars 2 0 0];
   A 3638 2 true [REDUCE sym_declVars 2 0 0; SHIFT 1368];
   A 3641 2 true [REDUCE sym_declVars 2 0 0; SHIFT 13674];
   A 3644 2 true [REDUCE sym_declVars 2 0 0; SHIFT 13675]; A 3647 1 true [SHIFT 15946];
   A 3649 1 true [SHIFT 13618]; A 3651 1 true [SHIFT 14274]; A 3653 1 true [SHIFT 5854];
   A 3655 1 true [SHIFT 13047]; A 3657 1 true [SHIFT 15322]; A 3659 1 true [SHIFT 14689];
   A 3661 1 true [SHIFT 14871]; A 3663 1 true [SHIFT 15147]; A 3665 1 true [SHIFT 15226];
   A 3667 1 true [SHIFT 12403]; A 3669 1 true [REDUCE sym_declVars 3 0 0];
   A 3671 2 true [REDUCE sym_declVars 3 0 0; SHIFT 4017];
   A 3674 1 false [REDUCE sym_declVars 3 0 0];
   A 3676 2 true [REDUCE sym_declVars 3 0 0; SHIFT 1368];
   A 3679 2 true [REDUCE sym_declVars 3 0 0; SHIFT 13674];
   A 3682 2 true [REDUCE sym_declVars 3 0 0; SHIFT 13675]; A 3685 1 true [SHIFT 5561];
   A 3687 1 true [SHIFT 15468]; A 3689 1 true [SHIFT 12228]; A 3691 1 true [SHIFT 15576];
   A 3693 1 true [REDUCE aux_sym_declVars_repeat1 2 0 0];
   A 3695 2 true [REDUCE aux_sym_declVars_repeat1 2 0 0; SHIFT_REPEAT 4017];
   A 3698 1 false [REDUCE aux_sym_declVars_repeat1 2 0 0];
   A 3700 2 true [REDUCE aux_sym_declVars_repeat1 2 0 0; SHIFT_REPEAT 1368];
   A 3703 2 true [REDUCE aux_sym_declVars_repeat1 2 0 0; SHIFT_REPEAT 13674];
   A 3706 2 true [REDUCE aux_sym_declVars_repeat1 2 0 0; SHIFT_REPEAT 13675];
   A 3709 1 true [SHIFT 15838]; A 3711 1 true [SHIFT 12738]; A 3713 1 true [SHIFT 3630];
   A 3715 1 true [SHIFT 12773]; A 3717 1 true [SHIFT 12446]; A 3719 1 true [SHIFT 3432];
   A 3721 1 true [SHIFT 12364]; A 3723 1 true [SHIFT 13306]; A 3725 1 true [SHIFT 5728];
   A 3727 1 true [REDUCE sym_declVar 5 0 151];
   A 3729 2 true [REDUCE sym_declVar 5 0 151; SHIFT 3655];
   A 3732 1 false [REDUCE sym_declVar 5 0 151];
   A 3734 2 true [REDUCE sym_declVar 5 0 151; SHIFT 12561];
   A 3737 2 true [REDUCE sym_declVar 5 0 151; SHIFT 4468];
   A 3740 2 true [REDUCE sym_declVar 5 0 151; SHIFT 12824];
   A 3743 2 true [REDUCE sym_declVar 5 0 151; SHIFT 4077];
   A 3746 2 true [REDUCE sym_declVar 5 0 151; SHIFT 3867];
   A 3749 2 true [REDUCE sym_declVar 5 0 151; SHIFT 4478];
   A 3752 2 true [REDUCE sym_declVar 5 0 151; SHIFT 14986];
   A 3755 1 true [REDUCE sym_declVar 5 0 147];
   A 3757 2 true [REDUCE sym_declVar 5 0 147; SHIFT 3655];
   A 3760 1 false [REDUCE sym_declVar 5 0 147];
   A 3762 2 true [REDUCE sym_declVar 5 0 147; SHIFT 12561];
   A 3765 2 true [REDUCE sym_declVar 5 0 147; SHIFT 4468];
   A 3768 2 true [REDUCE sym_declVar 5 0 147; SHIFT 12824];
   A 3771 2 true [REDUCE sym_declVar 5 0 147; SHIFT 4077];
   A 3774 2 true [REDUCE sym_declVar 5 0 147; SHIFT 3867];
   A 3777 2 true [REDUCE sym_declVar 5 0 147; SHIFT 4478];
   A 3780 2 true [REDUCE sym_declVar 5 0 147; SHIFT 14986]; A 3783 1 true [SHIFT 14629];
   A 3785 1 true [SHIFT 7023]; A 3787 1 true [REDUCE sym__declOperator 8 0 230];
   A 3789 2 true [REDUCE sym__declOperator 8 0 230; SHIFT 4109];
   A 3792 1 false [REDUCE sym__declOperator 8 0 230];
   A 3794 2 true [REDUCE sym__declOperator 8 0 230; SHIFT 4093];
   A 3797 2 true [REDUCE sym__declOperator 8 0 230; SHIFT 12561];
   A 3800 2 true [REDUCE sym__declOperator 8 0 230; SHIFT 4468]
  ].

Definition ts_parse_actions_3803 : list (Z * list TSParseActionEntry) :=
  [
   A 3803 2 true [REDUCE sym__declOperator 8 0 230; SHIFT 12824];
   A 3806 2 true [REDUCE sym__declOperator 8 0 230; SHIFT 4077];
   A 3809 2 true [REDUCE sym__declOperator 8 0 230; SHIFT 3867];
   A 3812 2 true [REDUCE sym__declOperator 8 0 230; SHIFT 4478];
   A 3815 2 true [REDUCE sym__declOperator 8 0 230; SHIFT 14986];
   A 3818 1 true [REDUCE sym__declOperator 5 0 66];
   A 3820 2 true [REDUCE sym__declOperator 5 0 66; SHIFT 4109];
   A 3823 1 false [REDUCE sym__declOperator 5 0 66];
   A 3825 2 true [REDUCE sym__declOperator 5 0 66; SHIFT 4093];
   A 3828 2 true [REDUCE sym__declOperator 5 0 66; SHIFT 12561];
   A 3831 2 true [REDUCE sym__declOperator 5 0 66; SHIFT 4468];
   A 3834 2 true [REDUCE sym__declOperator 5 0 66; SHIFT 12824];
   A 3837 2 true [REDUCE sym__declOperator 5 0 66; SHIFT 4077];
   A 3840 2 true [REDUCE sym__declOperator 5 0 66; SHIFT 3867];
   A 3843 2 true [REDUCE sym__declOperator 5 0 66; SHIFT 4478];
   A 3846 2 true [REDUCE sym__declOperator 5 0 66; SHIFT 14986];
   A 3849 2 true [REDUCE sym__declProc 7 0 167; SHIFT 4109];
   A 3852 1 true [REDUCE sym__declOperator 6 0 127];
   A 3854 2 true [REDUCE sym__declOperator 6 0 127; SHIFT 4109];
   A 3857 1 false [REDUCE sym__declOperator 6 0 127];
   A 3859 2 true [REDUCE sym__declOperator 6 0 127; SHIFT 4093];
   A 3862 2 true [REDUCE sym__declOperator 6 0 127; SHIFT 12561];
   A 3865 2 true [REDUCE sym__declOperator 6 0 127; SHIFT 4468];
   A 3868 2 true [REDUCE sym__declOperator 6 0 127; SHIFT 12824];
   A 3871 2 true [REDUCE sym__declOperator 6 0 127; SHIFT 4077];
   A 3874 2 true [REDUCE sym__declOperator 6 0 127; SHIFT 3867];
   A 3877 2 true [REDUCE sym__declOperator 6 0 127; SHIFT 4478];
   A 3880 2 true [REDUCE sym__declOperator 6 0 127; SHIFT 14986];
   A 3883 1 true [REDUCE sym_declVar 7 0 239];
   A 3885 2 true [REDUCE sym_declVar 7 0 239; SHIFT 3655];
   A 3888 1 false [REDUCE sym_declVar 7 0 239];
   A 3890 2 true [REDUCE sym_declVar 7 0 239; SHIFT 12561];
   A 3893 2 true [REDUCE sym_declVar 7 0 239; SHIFT 4468];
   A 3896 2 true [REDUCE sym_declVar 7 0 239; SHIFT 12824];
   A 3899 2 true [REDUCE sym_declVar 7 0 239; SHIFT 4077];
   A 3902 2 true [REDUCE sym_declVar 7 0 239; SHIFT 3867];
   A 3905 2 true [REDUCE sym_declVar 7 0 239; SHIFT 4478];
   A 3908 2 true [REDUCE sym_declVar 7 0 239; SHIFT 14986];
   A 3911 1 true [REDUCE sym__declOperator 6 0 128];
   A 3913 2 true [REDUCE sym__declOperator 6 0 128; SHIFT 4109];
   A 3916 1 false [REDUCE sym__declOperator 6 0 128];
   A 3918 2 true [REDUCE sym__declOperator 6 0 128; SHIFT 4093];
   A 3921 2 true [REDUCE sym__declOperator 6 0 128; SHIFT 12561];
   A 3924 2 true [REDUCE sym__declOperator 6 0 128; SHIFT 4468];
   A 3927 2 true [REDUCE sym__declOperator 6 0 128; SHIFT 12824];
   A 3930 2 true [REDUCE sym__declOperator 6 0 128; SHIFT 4077];
   A 3933 2 true [REDUCE sym__declOperator 6 0 128; SHIFT 3867];
   A 3936 2 true [REDUCE sym__declOperator 6 0 128; SHIFT 4478];
   A 3939 2 true [REDUCE sym__declOperator 6 0 128; SHIFT 14986];
   A 3942 1 true [REDUCE sym_declVar 7 0 240];
   A 3944 2 true [REDUCE sym_declVar 7 0 240; SHIFT 3655];
   A 3947 1 false [REDUCE sym_declVar 7 0 240];
   A 3949 2 true [REDUCE sym_declVar 7 0 240; SHIFT 12561];
   A 3952 2 true [REDUCE sym_declVar 7 0 240; SHIFT 4468];
   A 3955 2 true [REDUCE sym_declVar 7 0 240; SHIFT 12824];
   A 3958 2 true [REDUCE sym_declVar 7 0 240; SHIFT 4077];
   A 3961 2 true [REDUCE sym_declVar 7 0 240; SHIFT 3867];
   A 3964 2 true [REDUCE sym_declVar 7 0 240; SHIFT 4478];
   A 3967 2 true [REDUCE sym_declVar 7 0 240; SHIFT 14986];
   A 3970 1 true [REDUCE sym_declVar 7 0 66];
   A 3972 2 true [REDUCE sym_declVar 7 0 66; SHIFT 3655];
   A 3975 1 false [REDUCE sym_declVar 7 0 66];
   A 3977 2 true [REDUCE sym_declVar 7 0 66; SHIFT 12561];
   A 3980 2 true [REDUCE sym_declVar 7 0 66; SHIFT 4468];
   A 3983 2 true [REDUCE sym_declVar 7 0 66; SHIFT 12824];
   A 3986 2 true [REDUCE sym_declVar 7 0 66; SHIFT 4077];
   A 3989 2 true [REDUCE sym_declVar 7 0 66; SHIFT 3867];
   A 3992 2 true [REDUCE sym_declVar 7 0 66; SHIFT 4478];
   A 3995 2 true [REDUCE sym_declVar 7 0 66; SHIFT 14986];
   A 3998 1 true [REDUCE sym__declOperator 8 0 226];
   A 4000 2 true [REDUCE sym__declOperator 8 0 226; SHIFT 4109];
   A 4003 1 false [REDUCE sym__declOperator 8 0 226];
   A 4005 2 true [REDUCE sym__declOperator 8 0 226; SHIFT 4093];
   A 4008 2 true [REDUCE sym__declOperator 8 0 226; SHIFT 12561];
   A 4011 2 true [REDUCE sym__declOperator 8 0 226; SHIFT 4468];
   A 4014 2 true [REDUCE sym__declOperator 8 0 226; SHIFT 12824];
   A 4017 2 true [REDUCE sym__declOperator 8 0 226; SHIFT 4077];
   A 4020 2 true [REDUCE sym__declOperator 8 0 226; SHIFT 3867];
   A 4023 2 true [REDUCE sym__declOperator 8 0 226; SHIFT 4478];
   A 4026 2 true [REDUCE sym__declOperator 8 0 226; SHIFT 14986];
   A 4029 1 true [REDUCE sym_declVar 4 0 94];
   A 4031 2 true [REDUCE sym_declVar 4 0 94; SHIFT 3655];
   A 4034 1 false [REDUCE sym_declVar 4 0 94];
   A 4036 2 true [REDUCE sym_declVar 4 0 94; SHIFT 12561];
   A 4039 2 true [REDUCE sym_declVar 4 0 94; SHIFT 4468];
   A 4042 2 true [REDUCE sym_declVar 4 0 94; SHIFT 12824];
   A 4045 2 true [REDUCE sym_declVar 4 0 94; SHIFT 4077];
   A 4048 2 true [REDUCE sym_declVar 4 0 94; SHIFT 3867];
   A 4051 2 true [REDUCE sym_declVar 4 0 94; SHIFT 4478];
   A 4054 2 true [REDUCE sym_declVar 4 0 94; SHIFT 14986];
   A 4057 1 true [REDUCE sym_declVar 7 0 238];
   A 4059 2 true [REDUCE sym_declVar 7 0 238; SHIFT 3655];
   A 4062 1 false [REDUCE sym_declVar 7 0 238];
   A 4064 2 true [REDUCE sym_declVar 7 0 238; SHIFT 12561];
   A 4067 2 true [REDUCE sym_declVar 7 0 238; SHIFT 4468];
   A 4070 2 true [REDUCE sym_declVar 7 0 238; SHIFT 12824];
   A 4073 2 true [REDUCE sym_declVar 7 0 238; SHIFT 4077];
   A 4076 2 true [REDUCE sym_declVar 7 0 238; SHIFT 3867];
   A 4079 2 true [REDUCE sym_declVar 7 0 238; SHIFT 4478];
   A 4082 2 true [REDUCE sym_declVar 7 0 238; SHIFT 14986];
   A 4085 1 true [REDUCE sym_declVar 4 0 95];
   A 4087 2 true [REDUCE sym_declVar 4 0 95; SHIFT 3655];
   A 4090 1 false [REDUCE sym_declVar 4 0 95];
   A 4092 2 true [REDUCE sym_declVar 4 0 95; SHIFT 12561];
   A 4095 2 true [REDUCE sym_declVar 4 0 95; SHIFT 4468];
   A 4098 2 true [REDUCE sym_declVar 4 0 95; SHIFT 12824];
   A 4101 2 true [REDUCE sym_declVar 4 0 95; SHIFT 4077];
   A 4104 2 true [REDUCE sym_declVar 4 0 95; SHIFT 3867];
   A 4107 2 true [REDUCE sym_declVar 4 0 95; SHIFT 4478];
   A 4110 2 true [REDUCE sym_declVar 4 0 95; SHIFT 14986];
   A 4113 1 true [REDUCE sym__declOperator 6 0 129];
   A 4115 2 true [REDUCE sym__declOperator 6 0 129; SHIFT 4109];
   A 4118 1 false [REDUCE sym__declOperator 6 0 129];
   A 4120 2 true [REDUCE sym__declOperator 6 0 129; SHIFT 4093];
   A 4123 2 true [REDUCE sym__declOperator 6 0 129; SHIFT 12561];
   A 4126 2 true [REDUCE sym__declOperator 6 0 129; SHIFT 4468];
   A 4129 2 true [REDUCE sym__declOperator 6 0 129; SHIFT 12824];
   A 4132 2 true [REDUCE sym__declOperator 6 0 129; SHIFT 4077];
   A 4135 2 true [REDUCE sym__declOperator 6 0 129; SHIFT 3867];
   A 4138 2 true [REDUCE sym__declOperator 6 0 129; SHIFT 4478];
   A 4141 2 true [REDUCE sym__declOperator 6 0 129; SHIFT 14986];
   A 4144 2 true [REDUCE sym__declProc 6 0 129; SHIFT 4109];
   A 4147 1 true [REDUCE sym__declOperator 6 0 130];
   A 4149 2 true [REDUCE sym__declOperator 6 0 130; SHIFT 4109];
   A 4152 1 false [REDUCE sym__declOperator 6 0 130];
   A 4154 2 true [REDUCE sym__declOperator 6 0 130; SHIFT 4093];
   A 4157 2 true [REDUCE sym__declOperator 6 0 130; SHIFT 12561];
   A 4160 2 true [REDUCE sym__declOperator 6 0 130; SHIFT 4468];
   A 4163 2 true [REDUCE sym__declOperator 6 0 130; SHIFT 12824];
   A 4166 2 true [REDUCE sym__declOperator 6 0 130; SHIFT 4077];
   A 4169 2 true [REDUCE sym__declOperator 6 0 130; SHIFT 3867];
   A 4172 2 true [REDUCE sym__declOperator 6 0 130; SHIFT 4478];
   A 4175 2 true [REDUCE sym__declOperator 6 0 130; SHIFT 14986];
   A 4178 1 true [REDUCE sym_declVar 7 0 153];
   A 4180 2 true [REDUCE sym_declVar 7 0 153; SHIFT 3655];
   A 4183 1 false [REDUCE sym_declVar 7 0 153];
   A 4185 2 true [REDUCE sym_declVar 7 0 153; SHIFT 12561];
   A 4188 2 true [REDUCE sym_declVar 7 0 153; SHIFT 4468];
   A 4191 2 true [REDUCE sym_declVar 7 0 153; SHIFT 12824];
   A 4194 2 true [REDUCE sym_declVar 7 0 153; SHIFT 4077];
   A 4197 2 true [REDUCE sym_declVar 7 0 153; SHIFT 3867];
   A 4200 2 true [REDUCE sym_declVar 7 0 153; SHIFT 4478];
   A 4203 2 true [REDUCE sym_declVar 7 0 153; SHIFT 14986];
   A 4206 1 true [REDUCE sym__declOperator 5 0 68];
   A 4208 2 true [REDUCE sym__declOperator 5 0 68; SHIFT 4109];
   A 4211 1 false [REDUCE sym__declOperator 5 0 68];
   A 4213 2 true [REDUCE sym__declOperator 5 0 68; SHIFT 4093];
   A 4216 2 true [REDUCE sym__declOperator 5 0 68; SHIFT 12561];
   A 4219 2 true [REDUCE sym__declOperator 5 0 68; SHIFT 4468];
   A 4222 2 true [REDUCE sym__declOperator 5 0 68; SHIFT 12824];
   A 4225 2 true [REDUCE sym__declOperator 5 0 68; SHIFT 4077];
   A 4228 2 true [REDUCE sym__declOperator 5 0 68; SHIFT 3867];
   A 4231 2 true [REDUCE sym__declOperator 5 0 68; SHIFT 4478];
   A 4234 2 true [REDUCE sym__declOperator 5 0 68; SHIFT 14986];
   A 4237 1 true [REDUCE sym_declVar 7 0 241];
   A 4239 2 true [REDUCE sym_declVar 7 0 241; SHIFT 3655];
   A 4242 1 false [REDUCE sym_declVar 7 0 241];
   A 4244 2 true [REDUCE sym_declVar 7 0 241; SHIFT 12561];
   A 4247 2 true [REDUCE sym_declVar 7 0 241; SHIFT 4468];
   A 4250 2 true [REDUCE sym_declVar 7 0 241; SHIFT 12824];
   A 4253 2 true [REDUCE sym_declVar 7 0 241; SHIFT 4077];
   A 4256 2 true [REDUCE sym_declVar 7 0 241; SHIFT 3867];
   A 4259 2 true [REDUCE sym_declVar 7 0 241; SHIFT 4478];
   A 4262 2 true [REDUCE sym_declVar 7 0 241; SHIFT 14986];
   A 4265 1 true [REDUCE sym__declOperator 5 0 69];
   A 4267 2 true [REDUCE sym__declOperator 5 0 69; SHIFT 4109];
   A 4270 1 false [REDUCE sym__declOperator 5 0 69];
   A 4272 2 true [REDUCE sym__declOperator 5 0 69; SHIFT 4093];
   A 4275 2 true [REDUCE sym__declOperator 5 0 69; SHIFT 12561];
   A 4278 2 true [REDUCE sym__declOperator 5 0 69; SHIFT 4468];
   A 4281 2 true [REDUCE sym__declOperator 5 0 69; SHIFT 12824];
   A 4284 2 true [REDUCE sym__declOperator 5 0 69; SHIFT 4077];
   A 4287 2 true [REDUCE sym__declOperator 5 0 69; SHIFT 3867];
   A 4290 2 true [REDUCE sym__declOperator 5 0 69; SHIFT 4478];
   A 4293 2 true [REDUCE sym__declOperator 5 0 69; SHIFT 14986];
   A 4296 2 true [REDUCE sym__declProc 7 0 186; SHIFT 4109]; A 4299 1 true [SHIFT 5736];
   A 4301 1 true [REDUCE sym_labeledStatementTr 1 0 0];
   A 4303 1 true [REDUCE sym__declOperator 5 0 70];
   A 4305 2 true [REDUCE sym__declOperator 5 0 70; SHIFT 4109];
   A 4308 1 false [REDUCE sym__declOperator 5 0 70];
   A 4310 2 true [REDUCE sym__declOperator 5 0 70; SHIFT 4093];
   A 4313 2 true [REDUCE sym__declOperator 5 0 70; SHIFT 12561];
   A 4316 2 true [REDUCE sym__declOperator 5 0 70; SHIFT 4468];
   A 4319 2 true [REDUCE sym__declOperator 5 0 70; SHIFT 12824];
   A 4322 2 true [REDUCE sym__declOperator 5 0 70; SHIFT 4077];
   A 4325 2 true [REDUCE sym__declOperator 5 0 70; SHIFT 3867];
   A 4328 2 true [REDUCE sym__declOperator 5 0 70; SHIFT 4478];
   A 4331 2 true [REDUCE sym__declOperator 5 0 70; SHIFT 14986];
   A 4334 2 true [REDUCE sym__declProc 8 0 218; SHIFT 4109];
   A 4337 1 true [REDUCE sym__declOperator 6 0 144];
   A 4339 2 true [REDUCE sym__declOperator 6 0 144; SHIFT 4109];
   A 4342 1 false [REDUCE sym__declOperator 6 0 144];
   A 4344 2 true [REDUCE sym__declOperator 6 0 144; SHIFT 4093];
   A 4347 2 true [REDUCE sym__declOperator 6 0 144; SHIFT 12561];
   A 4350 2 true [REDUCE sym__declOperator 6 0 144; SHIFT 4468];
   A 4353 2 true [REDUCE sym__declOperator 6 0 144; SHIFT 12824];
   A 4356 2 true [REDUCE sym__declOperator 6 0 144; SHIFT 4077];
   A 4359 2 true [REDUCE sym__declOperator 6 0 144; SHIFT 3867];
   A 4362 2 true [REDUCE sym__declOperator 6 0 144; SHIFT 4478];
   A 4365 2 true [REDUCE sym__declOperator 6 0 144; SHIFT 14986];
   A 4368 2 true [REDUCE sym_declVar 4 0 94; REDUCE sym_declField 4 0 94];
   A 4371 3 true [REDUCE sym_declVar 4 0 94; REDUCE sym_declField 4 0 94; SHIFT 3655];
   A 4375 2 false [REDUCE sym_declVar 4 0 94; REDUCE sym_declField 4 0 94];
   A 4378 3 true [REDUCE sym_declVar 4 0 94; REDUCE sym_declField 4 0 94; SHIFT 12561];
   A 4382 3 true [REDUCE sym_declVar 4 0 94; REDUCE sym_declField 4 0 94; SHIFT 4468];
   A 4386 3 true [REDUCE sym_declVar 4 0 94; REDUCE sym_declField 4 0 94; SHIFT 12824];
   A 4390 3 true [REDUCE sym_declVar 4 0 94; REDUCE sym_declField 4 0 94; SHIFT 4077];
   A 4394 3 true [REDUCE sym_declVar 4 0 94; REDUCE sym_declField 4 0 94; SHIFT 3867];
   A 4398 3 true [REDUCE sym_declVar 4 0 94; REDUCE sym_declField 4 0 94; SHIFT 4478];
   A 4402 3 true [REDUCE sym_declVar 4 0 94; REDUCE sym_declField 4 0 94; SHIFT 14986];
   A 4406 1 true [REDUCE sym__declOperator 6 0 145];
   A 4408 2 true [REDUCE sym__declOperator 6 0 145; SHIFT 4109];
   A 4411 1 false [REDUCE sym__declOperator 6 0 145];
   A 4413 2 true [REDUCE sym__declOperator 6 0 145; SHIFT 4093];
   A 4416 2 true [REDUCE sym__declOperator 6 0 145; SHIFT 12561];
   A 4419 2 true [REDUCE sym__declOperator 6 0 145; SHIFT 4468];
   A 4422 2 true [REDUCE sym__declOperator 6 0 145; SHIFT 12824];
   A 4425 2 true [REDUCE sym__declOperator 6 0 145; SHIFT 4077];
   A 4428 2 true [REDUCE sym__declOperator 6 0 145; SHIFT 3867];
   A 4431 2 true [REDUCE sym__declOperator 6 0 145; SHIFT 4478];
   A 4434 2 true [REDUCE sym__declOperator 6 0 145; SHIFT 14986]; A 4437 1 true [SHIFT 5740];
   A 4439 1 true [REDUCE sym_labeledStatementTr 2 0 0];
   A 4441 2 true [REDUCE sym__declProc 8 0 219; SHIFT 4109];
   A 4444 2 true [REDUCE sym__declProc 7 0 168; SHIFT 4109];
   A 4447 1 true [REDUCE sym_declVar 7 0 242];
   A 4449 2 true [REDUCE sym_declVar 7 0 242; SHIFT 3655];
   A 4452 1 false [REDUCE sym_declVar 7 0 242];
   A 4454 2 true [REDUCE sym_declVar 7 0 242; SHIFT 12561];
   A 4457 2 true [REDUCE sym_declVar 7 0 242; SHIFT 4468];
   A 4460 2 true [REDUCE sym_declVar 7 0 242; SHIFT 12824];
   A 4463 2 true [REDUCE sym_declVar 7 0 242; SHIFT 4077];
   A 4466 2 true [REDUCE sym_declVar 7 0 242; SHIFT 3867];
   A 4469 2 true [REDUCE sym_declVar 7 0 242; SHIFT 4478];
   A 4472 2 true [REDUCE sym_declVar 7 0 242; SHIFT 14986];
   A 4475 2 true [REDUCE sym__declProc 8 0 220; SHIFT 4109];
   A 4478 1 true [REDUCE sym_declVar 5 0 152];
   A 4480 2 true [REDUCE sym_declVar 5 0 152; SHIFT 3655];
   A 4483 1 false [REDUCE sym_declVar 5 0 152];
   A 4485 2 true [REDUCE sym_declVar 5 0 152; SHIFT 12561];
   A 4488 2 true [REDUCE sym_declVar 5 0 152; SHIFT 4468];
   A 4491 2 true [REDUCE sym_declVar 5 0 152; SHIFT 12824];
   A 4494 2 true [REDUCE sym_declVar 5 0 152; SHIFT 4077];
   A 4497 2 true [REDUCE sym_declVar 5 0 152; SHIFT 3867];
   A 4500 2 true [REDUCE sym_declVar 5 0 152; SHIFT 4478];
   A 4503 2 true [REDUCE sym_declVar 5 0 152; SHIFT 14986];
   A 4506 1 true [REDUCE sym_declVar 5 0 66];
   A 4508 2 true [REDUCE sym_declVar 5 0 66; SHIFT 3655];
   A 4511 1 false [REDUCE sym_declVar 5 0 66];
   A 4513 2 true [REDUCE sym_declVar 5 0 66; SHIFT 12561];
   A 4516 2 true [REDUCE sym_declVar 5 0 66; SHIFT 4468];
   A 4519 2 true [REDUCE sym_declVar 5 0 66; SHIFT 12824];
   A 4522 2 true [REDUCE sym_declVar 5 0 66; SHIFT 4077];
   A 4525 2 true [REDUCE sym_declVar 5 0 66; SHIFT 3867];
   A 4528 2 true [REDUCE sym_declVar 5 0 66; SHIFT 4478];
   A 4531 2 true [REDUCE sym_declVar 5 0 66; SHIFT 14986];
   A 4534 1 true [REDUCE sym_declVar 5 0 153];
   A 4536 2 true [REDUCE sym_declVar 5 0 153; SHIFT 3655];
   A 4539 1 false [REDUCE sym_declVar 5 0 153];
   A 4541 2 true [REDUCE sym_declVar 5 0 153; SHIFT 12561];
   A 4544 2 true [REDUCE sym_declVar 5 0 153; SHIFT 4468];
   A 4547 2 true [REDUCE sym_declVar 5 0 153; SHIFT 12824];
   A 4550 2 true [REDUCE sym_declVar 5 0 153; SHIFT 4077];
   A 4553 2 true [REDUCE sym_declVar 5 0 153; SHIFT 3867];
   A 4556 2 true [REDUCE sym_declVar 5 0 153; SHIFT 4478];
   A 4559 2 true [REDUCE sym_declVar 5 0 153; SHIFT 14986];
   A 4562 1 true [REDUCE sym__declOperator 9 0 272];
   A 4564 2 true [REDUCE sym__declOperator 9 0 272; SHIFT 4109];
   A 4567 1 false [REDUCE sym__declOperator 9 0 272];
   A 4569 2 true [REDUCE sym__declOperator 9 0 272; SHIFT 4093];
   A 4572 2 true [REDUCE sym__declOperator 9 0 272; SHIFT 12561];
   A 4575 2 true [REDUCE sym__declOperator 9 0 272; SHIFT 4468];
   A 4578 2 true [REDUCE sym__declOperator 9 0 272; SHIFT 12824];
   A 4581 2 true [REDUCE sym__declOperator 9 0 272; SHIFT 4077];
   A 4584 2 true [REDUCE sym__declOperator 9 0 272; SHIFT 3867];
   A 4587 2 true [REDUCE sym__declOperator 9 0 272; SHIFT 4478];
   A 4590 2 true [REDUCE sym__declOperator 9 0 272; SHIFT 14986];
   A 4593 1 true [REDUCE sym_declVar 5 0 154];
   A 4595 2 true [REDUCE sym_declVar 5 0 154; SHIFT 3655];
   A 4598 1 false [REDUCE sym_declVar 5 0 154];
   A 4600 2 true [REDUCE sym_declVar 5 0 154; SHIFT 12561];
   A 4603 2 true [REDUCE sym_declVar 5 0 154; SHIFT 4468];
   A 4606 2 true [REDUCE sym_declVar 5 0 154; SHIFT 12824];
   A 4609 2 true [REDUCE sym_declVar 5 0 154; SHIFT 4077];
   A 4612 2 true [REDUCE sym_declVar 5 0 154; SHIFT 3867];
   A 4615 2 true [REDUCE sym_declVar 5 0 154; SHIFT 4478];
   A 4618 2 true [REDUCE sym_declVar 5 0 154; SHIFT 14986];
   A 4621 1 true [REDUCE sym_declConsts 1 0 0];
   A 4623 2 true [REDUCE sym_declConsts 1 0 0; SHIFT 4020];
   A 4626 1 false [REDUCE sym_declConsts 1 0 0];
   A 4628 2 true [REDUCE sym_declConsts 1 0 0; SHIFT 1368];
   A 4631 2 true [REDUCE sym_declConsts 1 0 0; SHIFT 12522];
   A 4634 1 true [REDUCE sym__declOperator 9 0 264];
   A 4636 2 true [REDUCE sym__declOperator 9 0 264; SHIFT 4109];
   A 4639 1 false [REDUCE sym__declOperator 9 0 264];
   A 4641 2 true [REDUCE sym__declOperator 9 0 264; SHIFT 4093];
   A 4644 2 true [REDUCE sym__declOperator 9 0 264; SHIFT 12561];
   A 4647 2 true [REDUCE sym__declOperator 9 0 264; SHIFT 4468];
   A 4650 2 true [REDUCE sym__declOperator 9 0 264; SHIFT 12824];
   A 4653 2 true [REDUCE sym__declOperator 9 0 264; SHIFT 4077];
   A 4656 2 true [REDUCE sym__declOperator 9 0 264; SHIFT 3867];
   A 4659 2 true [REDUCE sym__declOperator 9 0 264; SHIFT 4478];
   A 4662 2 true [REDUCE sym__declOperator 9 0 264; SHIFT 14986];
   A 4665 2 true [REDUCE sym__declProc 6 0 130; SHIFT 4109];
   A 4668 2 true [REDUCE sym__declProc 8 0 221; SHIFT 4109];
   A 4671 2 true [REDUCE sym__declProc 7 0 165; SHIFT 4109];
   A 4674 1 true [REDUCE sym_declVar 8 0 273];
   A 4676 2 true [REDUCE sym_declVar 8 0 273; SHIFT 3655];
   A 4679 1 false [REDUCE sym_declVar 8 0 273];
   A 4681 2 true [REDUCE sym_declVar 8 0 273; SHIFT 12561];
   A 4684 2 true [REDUCE sym_declVar 8 0 273; SHIFT 4468];
   A 4687 2 true [REDUCE sym_declVar 8 0 273; SHIFT 12824];
   A 4690 2 true [REDUCE sym_declVar 8 0 273; SHIFT 4077];
   A 4693 2 true [REDUCE sym_declVar 8 0 273; SHIFT 3867];
   A 4696 2 true [REDUCE sym_declVar 8 0 273; SHIFT 4478];
   A 4699 2 true [REDUCE sym_declVar 8 0 273; SHIFT 14986];
   A 4702 1 true [REDUCE sym__declOperator 6 0 113];
   A 4704 2 true [REDUCE sym__declOperator 6 0 113; SHIFT 4109];
   A 4707 1 false [REDUCE sym__declOperator 6 0 113];
   A 4709 2 true [REDUCE sym__declOperator 6 0 113; SHIFT 4093];
   A 4712 2 true [REDUCE sym__declOperator 6 0 113; SHIFT 12561];
   A 4715 2 true [REDUCE sym__declOperator 6 0 113; SHIFT 4468];
   A 4718 2 true [REDUCE sym__declOperator 6 0 113; SHIFT 12824];
   A 4721 2 true [REDUCE sym__declOperator 6 0 113; SHIFT 4077];
   A 4724 2 true [REDUCE sym__declOperator 6 0 113; SHIFT 3867];
   A 4727 2 true [REDUCE sym__declOperator 6 0 113; SHIFT 4478];
   A 4730 2 true [REDUCE sym__declOperator 6 0 113; SHIFT 14986];
   A 4733 1 true [REDUCE sym_declVar 8 0 274];
   A 4735 2 true [REDUCE sym_declVar 8 0 274; SHIFT 3655];
   A 4738 1 false [REDUCE sym_declVar 8 0 274];
   A 4740 2 true [REDUCE sym_declVar 8 0 274; SHIFT 12561];
   A 4743 2 true [REDUCE sym_declVar 8 0 274; SHIFT 4468];
   A 4746 2 true [REDUCE sym_declVar 8 0 274; SHIFT 12824];
   A 4749 2 true [REDUCE sym_declVar 8 0 274; SHIFT 4077];
   A 4752 2 true [REDUCE sym_declVar 8 0 274; SHIFT 3867];
   A 4755 2 true [REDUCE sym_declVar 8 0 274; SHIFT 4478];
   A 4758 2 true [REDUCE sym_declVar 8 0 274; SHIFT 14986];
   A 4761 1 true [REDUCE sym_declVar 5 0 155];
   A 4763 2 true [REDUCE sym_declVar 5 0 155; SHIFT 3655];
   A 4766 1 false [REDUCE sym_declVar 5 0 155];
   A 4768 2 true [REDUCE sym_declVar 5 0 155; SHIFT 12561];
   A 4771 2 true [REDUCE sym_declVar 5 0 155; SHIFT 4468];
   A 4774 2 true [REDUCE sym_declVar 5 0 155; SHIFT 12824];
   A 4777 2 true [REDUCE sym_declVar 5 0 155; SHIFT 4077];
   A 4780 2 true [REDUCE sym_declVar 5 0 155; SHIFT 3867];
   A 4783 2 true [REDUCE sym_declVar 5 0 155; SHIFT 4478];
   A 4786 2 true [REDUCE sym_declVar 5 0 155; SHIFT 14986];
   A 4789 1 true [REDUCE sym__declOperator 5 0 71];
   A 4791 2 true [REDUCE sym__declOperator 5 0 71; SHIFT 4109];
   A 4794 1 false [REDUCE sym__declOperator 5 0 71];
   A 4796 2 true [REDUCE sym__declOperator 5 0 71; SHIFT 4093];
   A 4799 2 true [REDUCE sym__declOperator 5 0 71; SHIFT 12561];
   A 4802 2 true [REDUCE sym__declOperator 5 0 71; SHIFT 4468];
   A 4805 2 true [REDUCE sym__declOperator 5 0 71; SHIFT 12824];
   A 4808 2 true [REDUCE sym__declOperator 5 0 71; SHIFT 4077];
   A 4811 2 true [REDUCE sym__declOperator 5 0 71; SHIFT 3867];
   A 4814 2 true [REDUCE sym__declOperator 5 0 71; SHIFT 4478];
   A 4817 2 true [REDUCE sym__declOperator 5 0 71; SHIFT 14986];
   A 4820 1 true [REDUCE sym__declOperator 6 0 114];
   A 4822 2 true [REDUCE sym__declOperator 6 0 114; SHIFT 4109];
   A 4825 1 false [REDUCE sym__declOperator 6 0 114];
   A 4827 2 true [REDUCE sym__declOperator 6 0 114; SHIFT 4093];
   A 4830 2 true [REDUCE sym__declOperator 6 0 114; SHIFT 12561];
   A 4833 2 true [REDUCE sym__declOperator 6 0 114; SHIFT 4468];
   A 4836 2 true [REDUCE sym__declOperator 6 0 114; SHIFT 12824];
   A 4839 2 true [REDUCE sym__declOperator 6 0 114; SHIFT 4077];
   A 4842 2 true [REDUCE sym__declOperator 6 0 114; SHIFT 3867];
   A 4845 2 true [REDUCE sym__declOperator 6 0 114; SHIFT 4478];
   A 4848 2 true [REDUCE sym__declOperator 6 0 114; SHIFT 14986];
   A 4851 1 true [REDUCE sym_declVar 8 0 201];
   A 4853 2 true [REDUCE sym_declVar 8 0 201; SHIFT 3655];
   A 4856 1 false [REDUCE sym_declVar 8 0 201];
   A 4858 2 true [REDUCE sym_declVar 8 0 201; SHIFT 12561];
   A 4861 2 true [REDUCE sym_declVar 8 0 201; SHIFT 4468];
   A 4864 2 true [REDUCE sym_declVar 8 0 201; SHIFT 12824];
   A 4867 2 true [REDUCE sym_declVar 8 0 201; SHIFT 4077];
   A 4870 2 true [REDUCE sym_declVar 8 0 201; SHIFT 3867];
   A 4873 2 true [REDUCE sym_declVar 8 0 201; SHIFT 4478];
   A 4876 2 true [REDUCE sym_declVar 8 0 201; SHIFT 14986];
   A 4879 1 true [REDUCE sym_declVar 7 0 243];
   A 4881 2 true [REDUCE sym_declVar 7 0 243; SHIFT 3655];
   A 4884 1 false [REDUCE sym_declVar 7 0 243];
   A 4886 2 true [REDUCE sym_declVar 7 0 243; SHIFT 12561];
   A 4889 2 true [REDUCE sym_declVar 7 0 243; SHIFT 4468];
   A 4892 2 true [REDUCE sym_declVar 7 0 243; SHIFT 12824];
   A 4895 2 true [REDUCE sym_declVar 7 0 243; SHIFT 4077];
   A 4898 2 true [REDUCE sym_declVar 7 0 243; SHIFT 3867];
   A 4901 2 true [REDUCE sym_declVar 7 0 243; SHIFT 4478];
   A 4904 2 true [REDUCE sym_declVar 7 0 243; SHIFT 14986];
   A 4907 1 true [REDUCE sym_declVar 8 0 275];
   A 4909 2 true [REDUCE sym_declVar 8 0 275; SHIFT 3655];
   A 4912 1 false [REDUCE sym_declVar 8 0 275];
   A 4914 2 true [REDUCE sym_declVar 8 0 275; SHIFT 12561];
   A 4917 2 true [REDUCE sym_declVar 8 0 275; SHIFT 4468];
   A 4920 2 true [REDUCE sym_declVar 8 0 275; SHIFT 12824];
   A 4923 2 true [REDUCE sym_declVar 8 0 275; SHIFT 4077];
   A 4926 2 true [REDUCE sym_declVar 8 0 275; SHIFT 3867];
   A 4929 2 true [REDUCE sym_declVar 8 0 275; SHIFT 4478];
   A 4932 2 true [REDUCE sym_declVar 8 0 275; SHIFT 14986];
   A 4935 2 true [REDUCE sym__declProc 7 0 169; SHIFT 4109];
   A 4938 1 true [REDUCE sym__declOperator 5 0 62];
   A 4940 2 true [REDUCE sym__declOperator 5 0 62; SHIFT 4109];
   A 4943 1 false [REDUCE sym__declOperator 5 0 62];
   A 4945 2 true [REDUCE sym__declOperator 5 0 62; SHIFT 4093];
   A 4948 2 true [REDUCE sym__declOperator 5 0 62; SHIFT 12561];
   A 4951 2 true [REDUCE sym__declOperator 5 0 62; SHIFT 4468];
   A 4954 2 true [REDUCE sym__declOperator 5 0 62; SHIFT 12824];
   A 4957 2 true [REDUCE sym__declOperator 5 0 62; SHIFT 4077];
   A 4960 2 true [REDUCE sym__declOperator 5 0 62; SHIFT 3867];
   A 4963 2 true [REDUCE sym__declOperator 5 0 62; SHIFT 4478];
   A 4966 2 true [REDUCE sym__declOperator 5 0 62; SHIFT 14986];
   A 4969 1 true [REDUCE sym_declVar 7 0 244];
   A 4971 2 true [REDUCE sym_declVar 7 0 244; SHIFT 3655];
   A 4974 1 false [REDUCE sym_declVar 7 0 244];
   A 4976 2 true [REDUCE sym_declVar 7 0 244; SHIFT 12561];
   A 4979 2 true [REDUCE sym_declVar 7 0 244; SHIFT 4468];
   A 4982 2 true [REDUCE sym_declVar 7 0 244; SHIFT 12824];
   A 4985 2 true [REDUCE sym_declVar 7 0 244; SHIFT 4077];
   A 4988 2 true [REDUCE sym_declVar 7 0 244; SHIFT 3867];
   A 4991 2 true [REDUCE sym_declVar 7 0 244; SHIFT 4478];
   A 4994 2 true [REDUCE sym_declVar 7 0 244; SHIFT 14986];
   A 4997 1 true [REDUCE sym__declOperator 5 0 91];
   A 4999 2 true [REDUCE sym__declOperator 5 0 91; SHIFT 4109];
   A 5002 1 false [REDUCE sym__declOperator 5 0 91];
   A 5004 2 true [REDUCE sym__declOperator 5 0 91; SHIFT 4093];
   A 5007 2 true [REDUCE sym__declOperator 5 0 91; SHIFT 12561];
   A 5010 2 true [REDUCE sym__declOperator 5 0 91; SHIFT 4468];
   A 5013 2 true [REDUCE sym__declOperator 5 0 91; SHIFT 12824];
   A 5016 2 true [REDUCE sym__declOperator 5 0 91; SHIFT 4077];
   A 5019 2 true [REDUCE sym__declOperator 5 0 91; SHIFT 3867];
   A 5022 2 true [REDUCE sym__declOperator 5 0 91; SHIFT 4478];
   A 5025 2 true [REDUCE sym__declOperator 5 0 91; SHIFT 14986];
   A 5028 1 true [REDUCE sym__declOperator 5 0 57];
   A 5030 2 true [REDUCE sym__declOperator 5 0 57; SHIFT 4109];
   A 5033 1 false [REDUCE sym__declOperator 5 0 57];
   A 5035 2 true [REDUCE sym__declOperator 5 0 57; SHIFT 4093];
   A 5038 2 true [REDUCE sym__declOperator 5 0 57; SHIFT 12561];
   A 5041 2 true [REDUCE sym__declOperator 5 0 57; SHIFT 4468];
   A 5044 2 true [REDUCE sym__declOperator 5 0 57; SHIFT 12824];
   A 5047 2 true [REDUCE sym__declOperator 5 0 57; SHIFT 4077];
   A 5050 2 true [REDUCE sym__declOperator 5 0 57; SHIFT 3867];
   A 5053 2 true [REDUCE sym__declOperator 5 0 57; SHIFT 4478];
   A 5056 2 true [REDUCE sym__declOperator 5 0 57; SHIFT 14986];
   A 5059 2 true [REDUCE sym__declProc 8 0 222; SHIFT 4109];
   A 5062 1 true [REDUCE sym_declConsts 2 0 0];
   A 5064 2 true [REDUCE sym_declConsts 2 0 0; SHIFT 4020];
   A 5067 1 false [REDUCE sym_declConsts 2 0 0];
   A 5069 2 true [REDUCE sym_declConsts 2 0 0; SHIFT 1368];
   A 5072 2 true [REDUCE sym_declConsts 2 0 0; SHIFT 12522];
   A 5075 1 true [REDUCE sym__declOperator 5 0 58];
   A 5077 2 true [REDUCE sym__declOperator 5 0 58; SHIFT 4109];
   A 5080 1 false [REDUCE sym__declOperator 5 0 58];
   A 5082 2 true [REDUCE sym__declOperator 5 0 58; SHIFT 4093];
   A 5085 2 true [REDUCE sym__declOperator 5 0 58; SHIFT 12561];
   A 5088 2 true [REDUCE sym__declOperator 5 0 58; SHIFT 4468];
   A 5091 2 true [REDUCE sym__declOperator 5 0 58; SHIFT 12824];
   A 5094 2 true [REDUCE sym__declOperator 5 0 58; SHIFT 4077];
   A 5097 2 true [REDUCE sym__declOperator 5 0 58; SHIFT 3867];
   A 5100 2 true [REDUCE sym__declOperator 5 0 58; SHIFT 4478];
   A 5103 2 true [REDUCE sym__declOperator 5 0 58; SHIFT 14986];
   A 5106 1 true [REDUCE sym_declVar 8 0 202];
   A 5108 2 true [REDUCE sym_declVar 8 0 202; SHIFT 3655];
   A 5111 1 false [REDUCE sym_declVar 8 0 202];
   A 5113 2 true [REDUCE sym_declVar 8 0 202; SHIFT 12561];
   A 5116 2 true [REDUCE sym_declVar 8 0 202; SHIFT 4468];
   A 5119 2 true [REDUCE sym_declVar 8 0 202; SHIFT 12824];
   A 5122 2 true [REDUCE sym_declVar 8 0 202; SHIFT 4077];
   A 5125 2 true [REDUCE sym_declVar 8 0 202; SHIFT 3867];
   A 5128 2 true [REDUCE sym_declVar 8 0 202; SHIFT 4478];
   A 5131 2 true [REDUCE sym_declVar 8 0 202; SHIFT 14986];
   A 5134 1 true [REDUCE sym_declVar 8 0 276];
   A 5136 2 true [REDUCE sym_declVar 8 0 276; SHIFT 3655];
   A 5139 1 false [REDUCE sym_declVar 8 0 276];
   A 5141 2 true [REDUCE sym_declVar 8 0 276; SHIFT 12561];
   A 5144 2 true [REDUCE sym_declVar 8 0 276; SHIFT 4468];
   A 5147 2 true [REDUCE sym_declVar 8 0 276; SHIFT 12824];
   A 5150 2 true [REDUCE sym_declVar 8 0 276; SHIFT 4077];
   A 5153 2 true [REDUCE sym_declVar 8 0 276; SHIFT 3867];
   A 5156 2 true [REDUCE sym_declVar 8 0 276; SHIFT 4478];
   A 5159 2 true [REDUCE sym_declVar 8 0 276; SHIFT 14986];
   A 5162 1 true [REDUCE sym_declVar 8 0 277];
   A 5164 2 true [REDUCE sym_declVar 8 0 277; SHIFT 3655];
   A 5167 1 false [REDUCE sym_declVar 8 0 277];
   A 5169 2 true [REDUCE sym_declVar 8 0 277; SHIFT 12561];
   A 5172 2 true [REDUCE sym_declVar 8 0 277; SHIFT 4468];
   A 5175 2 true [REDUCE sym_declVar 8 0 277; SHIFT 12824];
   A 5178 2 true [REDUCE sym_declVar 8 0 277; SHIFT 4077];
   A 5181 2 true [REDUCE sym_declVar 8 0 277; SHIFT 3867];
   A 5184 2 true [REDUCE sym_declVar 8 0 277; SHIFT 4478];
   A 5187 2 true [REDUCE sym_declVar 8 0 277; SHIFT 14986];
   A 5190 1 true [REDUCE sym__declOperator 6 0 146];
   A 5192 2 true [REDUCE sym__declOperator 6 0 146; SHIFT 4109];
   A 5195 1 false [REDUCE sym__declOperator 6 0 146];
   A 5197 2 true [REDUCE sym__declOperator 6 0 146; SHIFT 4093];
   A 5200 2 true [REDUCE sym__declOperator 6 0 146; SHIFT 12561];
   A 5203 2 true [REDUCE sym__declOperator 6 0 146; SHIFT 4468];
   A 5206 2 true [REDUCE sym__declOperator 6 0 146; SHIFT 12824];
   A 5209 2 true [REDUCE sym__declOperator 6 0 146; SHIFT 4077];
   A 5212 2 true [REDUCE sym__declOperator 6 0 146; SHIFT 3867];
   A 5215 2 true [REDUCE sym__declOperator 6 0 146; SHIFT 4478];
   A 5218 2 true [REDUCE sym__declOperator 6 0 146; SHIFT 14986];
   A 5221 1 true [REDUCE sym_declVar 7 0 245];
   A 5223 2 true [REDUCE sym_declVar 7 0 245; SHIFT 3655];
   A 5226 1 false [REDUCE sym_declVar 7 0 245];
   A 5228 2 true [REDUCE sym_declVar 7 0 245; SHIFT 12561];
   A 5231 2 true [REDUCE sym_declVar 7 0 245; SHIFT 4468];
   A 5234 2 true [REDUCE sym_declVar 7 0 245; SHIFT 12824];
   A 5237 2 true [REDUCE sym_declVar 7 0 245; SHIFT 4077];
   A 5240 2 true [REDUCE sym_declVar 7 0 245; SHIFT 3867];
   A 5243 2 true [REDUCE sym_declVar 7 0 245; SHIFT 4478];
   A 5246 2 true [REDUCE sym_declVar 7 0 245; SHIFT 14986];
   A 5249 1 true [REDUCE sym_declVar 8 0 278];
   A 5251 2 true [REDUCE sym_declVar 8 0 278; SHIFT 3655];
   A 5254 1 false [REDUCE sym_declVar 8 0 278];
   A 5256 2 true [REDUCE sym_declVar 8 0 278; SHIFT 12561];
   A 5259 2 true [REDUCE sym_declVar 8 0 278; SHIFT 4468];
   A 5262 2 true [REDUCE sym_declVar 8 0 278; SHIFT 12824];
   A 5265 2 true [REDUCE sym_declVar 8 0 278; SHIFT 4077];
   A 5268 2 true [REDUCE sym_declVar 8 0 278; SHIFT 3867];
   A 5271 2 true [REDUCE sym_declVar 8 0 278; SHIFT 4478];
   A 5274 2 true [REDUCE sym_declVar 8 0 278; SHIFT 14986];
   A 5277 1 true [REDUCE sym__declOperator 6 0 115];
   A 5279 2 true [REDUCE sym__declOperator 6 0 115; SHIFT 4109];
   A 5282 1 false [REDUCE sym__declOperator 6 0 115];
   A 5284 2 true [REDUCE sym__declOperator 6 0 115; SHIFT 4093];
   A 5287 2 true [REDUCE sym__declOperator 6 0 115; SHIFT 12561];
   A 5290 2 true [REDUCE sym__declOperator 6 0 115; SHIFT 4468];
   A 5293 2 true [REDUCE sym__declOperator 6 0 115; SHIFT 12824];
   A 5296 2 true [REDUCE sym__declOperator 6 0 115; SHIFT 4077];
   A 5299 2 true [REDUCE sym__declOperator 6 0 115; SHIFT 3867];
   A 5302 2 true [REDUCE sym__declOperator 6 0 115; SHIFT 4478];
   A 5305 2 true [REDUCE sym__declOperator 6 0 115; SHIFT 14986];
   A 5308 1 true [REDUCE sym_declVar 7 0 154];
   A 5310 2 true [REDUCE sym_declVar 7 0 154; SHIFT 3655];
   A 5313 1 false [REDUCE sym_declVar 7 0 154];
   A 5315 2 true [REDUCE sym_declVar 7 0 154; SHIFT 12561];
   A 5318 2 true [REDUCE sym_declVar 7 0 154; SHIFT 4468];
   A 5321 2 true [REDUCE sym_declVar 7 0 154; SHIFT 12824];
   A 5324 2 true [REDUCE sym_declVar 7 0 154; SHIFT 4077];
   A 5327 2 true [REDUCE sym_declVar 7 0 154; SHIFT 3867];
   A 5330 2 true [REDUCE sym_declVar 7 0 154; SHIFT 4478];
   A 5333 2 true [REDUCE sym_declVar 7 0 154; SHIFT 14986];
   A 5336 2 true [REDUCE sym__declProc 8 0 223; SHIFT 4109];
   A 5339 1 true [REDUCE sym__declOperator 8 0 236];
   A 5341 2 true [REDUCE sym__declOperator 8 0 236; SHIFT 4109];
   A 5344 1 false [REDUCE sym__declOperator 8 0 236];
   A 5346 2 true [REDUCE sym__declOperator 8 0 236; SHIFT 4093];
   A 5349 2 true [REDUCE sym__declOperator 8 0 236; SHIFT 12561];
   A 5352 2 true [REDUCE sym__declOperator 8 0 236; SHIFT 4468];
   A 5355 2 true [REDUCE sym__declOperator 8 0 236; SHIFT 12824];
   A 5358 2 true [REDUCE sym__declOperator 8 0 236; SHIFT 4077];
   A 5361 2 true [REDUCE sym__declOperator 8 0 236; SHIFT 3867];
   A 5364 2 true [REDUCE sym__declOperator 8 0 236; SHIFT 4478];
   A 5367 2 true [REDUCE sym__declOperator 8 0 236; SHIFT 14986];
   A 5370 2 true [REDUCE sym__declProc 8 0 224; SHIFT 4109];
   A 5373 1 true [REDUCE sym_declVar 7 0 246];
   A 5375 2 true [REDUCE sym_declVar 7 0 246; SHIFT 3655];
   A 5378 1 false [REDUCE sym_declVar 7 0 246];
   A 5380 2 true [REDUCE sym_declVar 7 0 246; SHIFT 12561];
   A 5383 2 true [REDUCE sym_declVar 7 0 246; SHIFT 4468];
   A 5386 2 true [REDUCE sym_declVar 7 0 246; SHIFT 12824];
   A 5389 2 true [REDUCE sym_declVar 7 0 246; SHIFT 4077];
   A 5392 2 true [REDUCE sym_declVar 7 0 246; SHIFT 3867];
   A 5395 2 true [REDUCE sym_declVar 7 0 246; SHIFT 4478];
   A 5398 2 true [REDUCE sym_declVar 7 0 246; SHIFT 14986];
   A 5401 1 true [REDUCE sym__declOperator 7 0 175];
   A 5403 2 true [REDUCE sym__declOperator 7 0 175; SHIFT 4109];
   A 5406 1 false [REDUCE sym__declOperator 7 0 175];
   A 5408 2 true [REDUCE sym__declOperator 7 0 175; SHIFT 4093];
   A 5411 2 true [REDUCE sym__declOperator 7 0 175; SHIFT 12561];
   A 5414 2 true [REDUCE sym__declOperator 7 0 175; SHIFT 4468];
   A 5417 2 true [REDUCE sym__declOperator 7 0 175; SHIFT 12824];
   A 5420 2 true [REDUCE sym__declOperator 7 0 175; SHIFT 4077];
   A 5423 2 true [REDUCE sym__declOperator 7 0 175; SHIFT 3867];
   A 5426 2 true [REDUCE sym__declOperator 7 0 175; SHIFT 4478];
   A 5429 2 true [REDUCE sym__declOperator 7 0 175; SHIFT 14986];
   A 5432 1 true [REDUCE sym__declOperator 7 0 176];
   A 5434 2 true [REDUCE sym__declOperator 7 0 176; SHIFT 4109];
   A 5437 1 false [REDUCE sym__declOperator 7 0 176];
   A 5439 2 true [REDUCE sym__declOperator 7 0 176; SHIFT 4093];
   A 5442 2 true [REDUCE sym__declOperator 7 0 176; SHIFT 12561];
   A 5445 2 true [REDUCE sym__declOperator 7 0 176; SHIFT 4468];
   A 5448 2 true [REDUCE sym__declOperator 7 0 176; SHIFT 12824];
   A 5451 2 true [REDUCE sym__declOperator 7 0 176; SHIFT 4077];
   A 5454 2 true [REDUCE sym__declOperator 7 0 176; SHIFT 3867];
   A 5457 2 true [REDUCE sym__declOperator 7 0 176; SHIFT 4478];
   A 5460 2 true [REDUCE sym__declOperator 7 0 176; SHIFT 14986];
   A 5463 2 true [REDUCE sym__declProc 7 0 170; SHIFT 4109];
   A 5466 1 true [REDUCE sym__declOperator 7 0 180];
   A 5468 2 true [REDUCE sym__declOperator 7 0 180; SHIFT 4109];
   A 5471 1 false [REDUCE sym__declOperator 7 0 180];
   A 5473 2 true [REDUCE sym__declOperator 7 0 180; SHIFT 4093];
   A 5476 2 true [REDUCE sym__declOperator 7 0 180; SHIFT 12561];
   A 5479 2 true [REDUCE sym__declOperator 7 0 180; SHIFT 4468];
   A 5482 2 true [REDUCE sym__declOperator 7 0 180; SHIFT 12824];
   A 5485 2 true [REDUCE sym__declOperator 7 0 180; SHIFT 4077];
   A 5488 2 true [REDUCE sym__declOperator 7 0 180; SHIFT 3867];
   A 5491 2 true [REDUCE sym__declOperator 7 0 180; SHIFT 4478];
   A 5494 2 true [REDUCE sym__declOperator 7 0 180; SHIFT 14986]; A 5497 1 true [SHIFT 5633];
   A 5499 2 true [REDUCE sym__declProc 8 0 232; SHIFT 4109];
   A 5502 1 true [REDUCE sym__declOperator 5 0 63];
   A 5504 2 true [REDUCE sym__declOperator 5 0 63; SHIFT 4109];
   A 5507 1 false [REDUCE sym__declOperator 5 0 63];
   A 5509 2 true [REDUCE sym__declOperator 5 0 63; SHIFT 4093];
   A 5512 2 true [REDUCE sym__declOperator 5 0 63; SHIFT 12561];
   A 5515 2 true [REDUCE sym__declOperator 5 0 63; SHIFT 4468];
   A 5518 2 true [REDUCE sym__declOperator 5 0 63; SHIFT 12824];
   A 5521 2 true [REDUCE sym__declOperator 5 0 63; SHIFT 4077];
   A 5524 2 true [REDUCE sym__declOperator 5 0 63; SHIFT 3867];
   A 5527 2 true [REDUCE sym__declOperator 5 0 63; SHIFT 4478];
   A 5530 2 true [REDUCE sym__declOperator 5 0 63; SHIFT 14986];
   A 5533 1 true [REDUCE sym__declOperator 10 0 293];
   A 5535 2 true [REDUCE sym__declOperator 10 0 293; SHIFT 4109];
   A 5538 1 false [REDUCE sym__declOperator 10 0 293];
   A 5540 2 true [REDUCE sym__declOperator 10 0 293; SHIFT 4093];
   A 5543 2 true [REDUCE sym__declOperator 10 0 293; SHIFT 12561];
   A 5546 2 true [REDUCE sym__declOperator 10 0 293; SHIFT 4468];
   A 5549 2 true [REDUCE sym__declOperator 10 0 293; SHIFT 12824];
   A 5552 2 true [REDUCE sym__declOperator 10 0 293; SHIFT 4077];
   A 5555 2 true [REDUCE sym__declOperator 10 0 293; SHIFT 3867];
   A 5558 2 true [REDUCE sym__declOperator 10 0 293; SHIFT 4478];
   A 5561 2 true [REDUCE sym__declOperator 10 0 293; SHIFT 14986];
   A 5564 2 true [REDUCE sym__declProc 9 0 261; SHIFT 4109];
   A 5567 1 true [REDUCE sym__declOperator 6 0 116];
   A 5569 2 true [REDUCE sym__declOperator 6 0 116; SHIFT 4109];
   A 5572 1 false [REDUCE sym__declOperator 6 0 116];
   A 5574 2 true [REDUCE sym__declOperator 6 0 116; SHIFT 4093];
   A 5577 2 true [REDUCE sym__declOperator 6 0 116; SHIFT 12561];
   A 5580 2 true [REDUCE sym__declOperator 6 0 116; SHIFT 4468];
   A 5583 2 true [REDUCE sym__declOperator 6 0 116; SHIFT 12824];
   A 5586 2 true [REDUCE sym__declOperator 6 0 116; SHIFT 4077];
   A 5589 2 true [REDUCE sym__declOperator 6 0 116; SHIFT 3867];
   A 5592 2 true [REDUCE sym__declOperator 6 0 116; SHIFT 4478];
   A 5595 2 true [REDUCE sym__declOperator 6 0 116; SHIFT 14986];
   A 5598 1 true [REDUCE sym_declVar 7 0 155];
   A 5600 2 true [REDUCE sym_declVar 7 0 155; SHIFT 3655];
   A 5603 1 false [REDUCE sym_declVar 7 0 155];
   A 5605 2 true [REDUCE sym_declVar 7 0 155; SHIFT 12561];
   A 5608 2 true [REDUCE sym_declVar 7 0 155; SHIFT 4468];
   A 5611 2 true [REDUCE sym_declVar 7 0 155; SHIFT 12824];
   A 5614 2 true [REDUCE sym_declVar 7 0 155; SHIFT 4077];
   A 5617 2 true [REDUCE sym_declVar 7 0 155; SHIFT 3867];
   A 5620 2 true [REDUCE sym_declVar 7 0 155; SHIFT 4478];
   A 5623 2 true [REDUCE sym_declVar 7 0 155; SHIFT 14986];
   A 5626 1 true [REDUCE sym__declOperator 3 0 11];
   A 5628 2 true [REDUCE sym__declOperator 3 0 11; SHIFT 4109];
   A 5631 1 false [REDUCE sym__declOperator 3 0 11];
   A 5633 2 true [REDUCE sym__declOperator 3 0 11; SHIFT 4093];
   A 5636 2 true [REDUCE sym__declOperator 3 0 11; SHIFT 12561];
   A 5639 2 true [REDUCE sym__declOperator 3 0 11; SHIFT 4468];
   A 5642 2 true [REDUCE sym__declOperator 3 0 11; SHIFT 12824];
   A 5645 2 true [REDUCE sym__declOperator 3 0 11; SHIFT 4077];
   A 5648 2 true [REDUCE sym__declOperator 3 0 11; SHIFT 3867];
   A 5651 2 true [REDUCE sym__declOperator 3 0 11; SHIFT 4478];
   A 5654 2 true [REDUCE sym__declOperator 3 0 11; SHIFT 14986];
   A 5657 1 true [REDUCE sym__declOperator 7 0 183];
   A 5659 2 true [REDUCE sym__declOperator 7 0 183; SHIFT 4109];
   A 5662 1 false [REDUCE sym__declOperator 7 0 183];
   A 5664 2 true [REDUCE sym__declOperator 7 0 183; SHIFT 4093];
   A 5667 2 true [REDUCE sym__declOperator 7 0 183; SHIFT 12561];
   A 5670 2 true [REDUCE sym__declOperator 7 0 183; SHIFT 4468];
   A 5673 2 true [REDUCE sym__declOperator 7 0 183; SHIFT 12824];
   A 5676 2 true [REDUCE sym__declOperator 7 0 183; SHIFT 4077];
   A 5679 2 true [REDUCE sym__declOperator 7 0 183; SHIFT 3867];
   A 5682 2 true [REDUCE sym__declOperator 7 0 183; SHIFT 4478];
   A 5685 2 true [REDUCE sym__declOperator 7 0 183; SHIFT 14986];
   A 5688 2 true [REDUCE sym__declProc 7 0 171; SHIFT 4109];
   A 5691 1 true [REDUCE sym__declOperator 7 0 184];
   A 5693 2 true [REDUCE sym__declOperator 7 0 184; SHIFT 4109];
   A 5696 1 false [REDUCE sym__declOperator 7 0 184];
   A 5698 2 true [REDUCE sym__declOperator 7 0 184; SHIFT 4093];
   A 5701 2 true [REDUCE sym__declOperator 7 0 184; SHIFT 12561];
   A 5704 2 true [REDUCE sym__declOperator 7 0 184; SHIFT 4468];
   A 5707 2 true [REDUCE sym__declOperator 7 0 184; SHIFT 12824];
   A 5710 2 true [REDUCE sym__declOperator 7 0 184; SHIFT 4077];
   A 5713 2 true [REDUCE sym__declOperator 7 0 184; SHIFT 3867];
   A 5716 2 true [REDUCE sym__declOperator 7 0 184; SHIFT 4478];
   A 5719 2 true [REDUCE sym__declOperator 7 0 184; SHIFT 14986];
   A 5722 1 true [REDUCE sym_declVar 9 0 294];
   A 5724 2 true [REDUCE sym_declVar 9 0 294; SHIFT 3655];
   A 5727 1 false [REDUCE sym_declVar 9 0 294];
   A 5729 2 true [REDUCE sym_declVar 9 0 294; SHIFT 12561];
   A 5732 2 true [REDUCE sym_declVar 9 0 294; SHIFT 4468];
   A 5735 2 true [REDUCE sym_declVar 9 0 294; SHIFT 12824];
   A 5738 2 true [REDUCE sym_declVar 9 0 294; SHIFT 4077];
   A 5741 2 true [REDUCE sym_declVar 9 0 294; SHIFT 3867];
   A 5744 2 true [REDUCE sym_declVar 9 0 294; SHIFT 4478];
   A 5747 2 true [REDUCE sym_declVar 9 0 294; SHIFT 14986];
   A 5750 1 true [REDUCE sym__declOperator 7 0 185];
   A 5752 2 true [REDUCE sym__declOperator 7 0 185; SHIFT 4109];
   A 5755 1 false [REDUCE sym__declOperator 7 0 185];
   A 5757 2 true [REDUCE sym__declOperator 7 0 185; SHIFT 4093];
   A 5760 2 true [REDUCE sym__declOperator 7 0 185; SHIFT 12561];
   A 5763 2 true [REDUCE sym__declOperator 7 0 185; SHIFT 4468];
   A 5766 2 true [REDUCE sym__declOperator 7 0 185; SHIFT 12824];
   A 5769 2 true [REDUCE sym__declOperator 7 0 185; SHIFT 4077];
   A 5772 2 true [REDUCE sym__declOperator 7 0 185; SHIFT 3867];
   A 5775 2 true [REDUCE sym__declOperator 7 0 185; SHIFT 4478];
   A 5778 2 true [REDUCE sym__declOperator 7 0 185; SHIFT 14986];
   A 5781 1 true [REDUCE sym_declConsts 3 0 0];
   A 5783 2 true [REDUCE sym_declConsts 3 0 0; SHIFT 4020];
   A 5786 1 false [REDUCE sym_declConsts 3 0 0];
   A 5788 2 true [REDUCE sym_declConsts 3 0 0; SHIFT 1368];
   A 5791 2 true [REDUCE sym_declConsts 3 0 0; SHIFT 12522];
   A 5794 2 true [REDUCE sym__declProc 6 0 116; SHIFT 4109];
   A 5797 1 true [REDUCE sym_declVar 7 0 247];
   A 5799 2 true [REDUCE sym_declVar 7 0 247; SHIFT 3655];
   A 5802 1 false [REDUCE sym_declVar 7 0 247];
   A 5804 2 true [REDUCE sym_declVar 7 0 247; SHIFT 12561];
   A 5807 2 true [REDUCE sym_declVar 7 0 247; SHIFT 4468];
   A 5810 2 true [REDUCE sym_declVar 7 0 247; SHIFT 12824];
   A 5813 2 true [REDUCE sym_declVar 7 0 247; SHIFT 4077];
   A 5816 2 true [REDUCE sym_declVar 7 0 247; SHIFT 3867];
   A 5819 2 true [REDUCE sym_declVar 7 0 247; SHIFT 4478];
   A 5822 2 true [REDUCE sym_declVar 7 0 247; SHIFT 14986];
   A 5825 1 true [REDUCE sym__declOperator 5 0 59];
   A 5827 2 true [REDUCE sym__declOperator 5 0 59; SHIFT 4109];
   A 5830 1 false [REDUCE sym__declOperator 5 0 59];
   A 5832 2 true [REDUCE sym__declOperator 5 0 59; SHIFT 4093];
   A 5835 2 true [REDUCE sym__declOperator 5 0 59; SHIFT 12561];
   A 5838 2 true [REDUCE sym__declOperator 5 0 59; SHIFT 4468];
   A 5841 2 true [REDUCE sym__declOperator 5 0 59; SHIFT 12824];
   A 5844 2 true [REDUCE sym__declOperator 5 0 59; SHIFT 4077];
   A 5847 2 true [REDUCE sym__declOperator 5 0 59; SHIFT 3867];
   A 5850 2 true [REDUCE sym__declOperator 5 0 59; SHIFT 4478];
   A 5853 2 true [REDUCE sym__declOperator 5 0 59; SHIFT 14986];
   A 5856 2 true [REDUCE sym__declProc 7 0 172; SHIFT 4109];
   A 5859 1 true [REDUCE sym__declOperator 6 0 119];
   A 5861 2 true [REDUCE sym__declOperator 6 0 119; SHIFT 4109];
   A 5864 1 false [REDUCE sym__declOperator 6 0 119];
   A 5866 2 true [REDUCE sym__declOperator 6 0 119; SHIFT 4093];
   A 5869 2 true [REDUCE sym__declOperator 6 0 119; SHIFT 12561];
   A 5872 2 true [REDUCE sym__declOperator 6 0 119; SHIFT 4468];
   A 5875 2 true [REDUCE sym__declOperator 6 0 119; SHIFT 12824];
   A 5878 2 true [REDUCE sym__declOperator 6 0 119; SHIFT 4077];
   A 5881 2 true [REDUCE sym__declOperator 6 0 119; SHIFT 3867];
   A 5884 2 true [REDUCE sym__declOperator 6 0 119; SHIFT 4478];
   A 5887 2 true [REDUCE sym__declOperator 6 0 119; SHIFT 14986];
   A 5890 2 true [REDUCE aux_sym__declProc_repeat1 2 0 55; SHIFT_REPEAT 4109];
   A 5893 1 true [REDUCE sym__declOperator 7 0 186];
   A 5895 2 true [REDUCE sym__declOperator 7 0 186; SHIFT 4109];
   A 5898 1 false [REDUCE sym__declOperator 7 0 186];
   A 5900 2 true [REDUCE sym__declOperator 7 0 186; SHIFT 4093];
   A 5903 2 true [REDUCE sym__declOperator 7 0 186; SHIFT 12561];
   A 5906 2 true [REDUCE sym__declOperator 7 0 186; SHIFT 4468];
   A 5909 2 true [REDUCE sym__declOperator 7 0 186; SHIFT 12824];
   A 5912 2 true [REDUCE sym__declOperator 7 0 186; SHIFT 4077];
   A 5915 2 true [REDUCE sym__declOperator 7 0 186; SHIFT 3867];
   A 5918 2 true [REDUCE sym__declOperator 7 0 186; SHIFT 4478];
   A 5921 2 true [REDUCE sym__declOperator 7 0 186; SHIFT 14986];
   A 5924 2 true [REDUCE sym__declProc 6 0 124; SHIFT 4109];
   A 5927 1 true [REDUCE sym__declOperator 7 0 193];
   A 5929 2 true [REDUCE sym__declOperator 7 0 193; SHIFT 4109];
   A 5932 1 false [REDUCE sym__declOperator 7 0 193];
   A 5934 2 true [REDUCE sym__declOperator 7 0 193; SHIFT 4093];
   A 5937 2 true [REDUCE sym__declOperator 7 0 193; SHIFT 12561];
   A 5940 2 true [REDUCE sym__declOperator 7 0 193; SHIFT 4468];
   A 5943 2 true [REDUCE sym__declOperator 7 0 193; SHIFT 12824];
   A 5946 2 true [REDUCE sym__declOperator 7 0 193; SHIFT 4077];
   A 5949 2 true [REDUCE sym__declOperator 7 0 193; SHIFT 3867];
   A 5952 2 true [REDUCE sym__declOperator 7 0 193; SHIFT 4478];
   A 5955 2 true [REDUCE sym__declOperator 7 0 193; SHIFT 14986];
   A 5958 2 true [REDUCE sym_declVar 5 0 66; REDUCE sym_declField 5 0 66];
   A 5961 3 true [REDUCE sym_declVar 5 0 66; REDUCE sym_declField 5 0 66; SHIFT 3655];
   A 5965 2 false [REDUCE sym_declVar 5 0 66; REDUCE sym_declField 5 0 66];
   A 5968 3 true [REDUCE sym_declVar 5 0 66; REDUCE sym_declField 5 0 66; SHIFT 12561];
   A 5972 3 true [REDUCE sym_declVar 5 0 66; REDUCE sym_declField 5 0 66; SHIFT 4468];
   A 5976 3 true [REDUCE sym_declVar 5 0 66; REDUCE sym_declField 5 0 66; SHIFT 12824];
   A 5980 3 true [REDUCE sym_declVar 5 0 66; REDUCE sym_declField 5 0 66; SHIFT 4077];
   A 5984 3 true [REDUCE sym_declVar 5 0 66; REDUCE sym_declField 5 0 66; SHIFT 3867];
   A 5988 3 true [REDUCE sym_declVar 5 0 66; REDUCE sym_declField 5 0 66; SHIFT 4478];
   A 5992 3 true [REDUCE sym_declVar 5 0 66; REDUCE sym_declField 5 0 66; SHIFT 14986];
   A 5996 1 true [REDUCE sym__declOperator 7 0 194];
   A 5998 2 true [REDUCE sym__declOperator 7 0 194; SHIFT 4109];
   A 6001 1 false [REDUCE sym__declOperator 7 0 194];
   A 6003 2 true [REDUCE sym__declOperator 7 0 194; SHIFT 4093];
   A 6006 2 true [REDUCE sym__declOperator 7 0 194; SHIFT 12561];
   A 6009 2 true [REDUCE sym__declOperator 7 0 194; SHIFT 4468];
   A 6012 2 true [REDUCE sym__declOperator 7 0 194; SHIFT 12824];
   A 6015 2 true [REDUCE sym__declOperator 7 0 194; SHIFT 4077];
   A 6018 2 true [REDUCE sym__declOperator 7 0 194; SHIFT 3867];
   A 6021 2 true [REDUCE sym__declOperator 7 0 194; SHIFT 4478];
   A 6024 2 true [REDUCE sym__declOperator 7 0 194; SHIFT 14986];
   A 6027 1 true [REDUCE sym__declOperator 6 0 120];
   A 6029 2 true [REDUCE sym__declOperator 6 0 120; SHIFT 4109];
   A 6032 1 false [REDUCE sym__declOperator 6 0 120];
   A 6034 2 true [REDUCE sym__declOperator 6 0 120; SHIFT 4093];
   A 6037 2 true [REDUCE sym__declOperator 6 0 120; SHIFT 12561];
   A 6040 2 true [REDUCE sym__declOperator 6 0 120; SHIFT 4468];
   A 6043 2 true [REDUCE sym__declOperator 6 0 120; SHIFT 12824];
   A 6046 2 true [REDUCE sym__declOperator 6 0 120; SHIFT 4077];
   A 6049 2 true [REDUCE sym__declOperator 6 0 120; SHIFT 3867];
   A 6052 2 true [REDUCE sym__declOperator 6 0 120; SHIFT 4478];
   A 6055 2 true [REDUCE sym__declOperator 6 0 120; SHIFT 14986];
   A 6058 2 true [REDUCE sym__declProc 9 0 262; SHIFT 4109]; A 6061 1 true [SHIFT 5649];
   A 6063 2 true [REDUCE sym__declProc 9 0 263; SHIFT 4109];
   A 6066 2 true [REDUCE sym_declConsts 1 0 0; SHIFT 12885]
  ].

Definition ts_parse_actions_6069 : list (Z * list TSParseActionEntry) :=
  [
   A 6069 1 true [REDUCE sym__declOperator 8 0 232];
   A 6071 2 true [REDUCE sym__declOperator 8 0 232; SHIFT 4109];
   A 6074 1 false [REDUCE sym__declOperator 8 0 232];
   A 6076 2 true [REDUCE sym__declOperator 8 0 232; SHIFT 4093];
   A 6079 2 true [REDUCE sym__declOperator 8 0 232; SHIFT 12561];
   A 6082 2 true [REDUCE sym__declOperator 8 0 232; SHIFT 4468];
   A 6085 2 true [REDUCE sym__declOperator 8 0 232; SHIFT 12824];
   A 6088 2 true [REDUCE sym__declOperator 8 0 232; SHIFT 4077];
   A 6091 2 true [REDUCE sym__declOperator 8 0 232; SHIFT 3867];
   A 6094 2 true [REDUCE sym__declOperator 8 0 232; SHIFT 4478];
   A 6097 2 true [REDUCE sym__declOperator 8 0 232; SHIFT 14986];
   A 6100 2 true [REDUCE sym__declProc 9 0 264; SHIFT 4109];
   A 6103 1 true [REDUCE sym__declOperator 7 0 169];
   A 6105 2 true [REDUCE sym__declOperator 7 0 169; SHIFT 4109];
   A 6108 1 false [REDUCE sym__declOperator 7 0 169];
   A 6110 2 true [REDUCE sym__declOperator 7 0 169; SHIFT 4093];
   A 6113 2 true [REDUCE sym__declOperator 7 0 169; SHIFT 12561];
   A 6116 2 true [REDUCE sym__declOperator 7 0 169; SHIFT 4468];
   A 6119 2 true [REDUCE sym__declOperator 7 0 169; SHIFT 12824];
   A 6122 2 true [REDUCE sym__declOperator 7 0 169; SHIFT 4077];
   A 6125 2 true [REDUCE sym__declOperator 7 0 169; SHIFT 3867];
   A 6128 2 true [REDUCE sym__declOperator 7 0 169; SHIFT 4478];
   A 6131 2 true [REDUCE sym__declOperator 7 0 169; SHIFT 14986];
   A 6134 1 true [REDUCE sym__declOperator 8 0 234];
   A 6136 2 true [REDUCE sym__declOperator 8 0 234; SHIFT 4109];
   A 6139 1 false [REDUCE sym__declOperator 8 0 234];
   A 6141 2 true [REDUCE sym__declOperator 8 0 234; SHIFT 4093];
   A 6144 2 true [REDUCE sym__declOperator 8 0 234; SHIFT 12561];
   A 6147 2 true [REDUCE sym__declOperator 8 0 234; SHIFT 4468];
   A 6150 2 true [REDUCE sym__declOperator 8 0 234; SHIFT 12824];
   A 6153 2 true [REDUCE sym__declOperator 8 0 234; SHIFT 4077];
   A 6156 2 true [REDUCE sym__declOperator 8 0 234; SHIFT 3867];
   A 6159 2 true [REDUCE sym__declOperator 8 0 234; SHIFT 4478];
   A 6162 2 true [REDUCE sym__declOperator 8 0 234; SHIFT 14986];
   A 6165 1 true [REDUCE sym__declOperator 7 0 170];
   A 6167 2 true [REDUCE sym__declOperator 7 0 170; SHIFT 4109];
   A 6170 1 false [REDUCE sym__declOperator 7 0 170];
   A 6172 2 true [REDUCE sym__declOperator 7 0 170; SHIFT 4093];
   A 6175 2 true [REDUCE sym__declOperator 7 0 170; SHIFT 12561];
   A 6178 2 true [REDUCE sym__declOperator 7 0 170; SHIFT 4468];
   A 6181 2 true [REDUCE sym__declOperator 7 0 170; SHIFT 12824];
   A 6184 2 true [REDUCE sym__declOperator 7 0 170; SHIFT 4077];
   A 6187 2 true [REDUCE sym__declOperator 7 0 170; SHIFT 3867];
   A 6190 2 true [REDUCE sym__declOperator 7 0 170; SHIFT 4478];
   A 6193 2 true [REDUCE sym__declOperator 7 0 170; SHIFT 14986];
   A 6196 1 true [REDUCE aux_sym_declConsts_repeat1 2 0 0];
   A 6198 2 true [REDUCE aux_sym_declConsts_repeat1 2 0 0; SHIFT_REPEAT 4020];
   A 6201 1 false [REDUCE aux_sym_declConsts_repeat1 2 0 0];
   A 6203 2 true [REDUCE aux_sym_declConsts_repeat1 2 0 0; SHIFT_REPEAT 1368];
   A 6206 2 true [REDUCE aux_sym_declConsts_repeat1 2 0 0; SHIFT_REPEAT 12522];
   A 6209 1 true [REDUCE sym__declOperator 7 0 195];
   A 6211 2 true [REDUCE sym__declOperator 7 0 195; SHIFT 4109];
   A 6214 1 false [REDUCE sym__declOperator 7 0 195];
   A 6216 2 true [REDUCE sym__declOperator 7 0 195; SHIFT 4093];
   A 6219 2 true [REDUCE sym__declOperator 7 0 195; SHIFT 12561];
   A 6222 2 true [REDUCE sym__declOperator 7 0 195; SHIFT 4468];
   A 6225 2 true [REDUCE sym__declOperator 7 0 195; SHIFT 12824];
   A 6228 2 true [REDUCE sym__declOperator 7 0 195; SHIFT 4077];
   A 6231 2 true [REDUCE sym__declOperator 7 0 195; SHIFT 3867];
   A 6234 2 true [REDUCE sym__declOperator 7 0 195; SHIFT 4478];
   A 6237 2 true [REDUCE sym__declOperator 7 0 195; SHIFT 14986];
   A 6240 2 true [REDUCE sym__declProc 3 0 11; SHIFT 4109];
   A 6243 2 true [REDUCE sym__declProc 4 0 24; SHIFT 4109];
   A 6246 2 true [REDUCE sym__declProc 10 0 290; SHIFT 4109];
   A 6249 1 true [REDUCE sym__declOperator 8 0 235];
   A 6251 2 true [REDUCE sym__declOperator 8 0 235; SHIFT 4109];
   A 6254 1 false [REDUCE sym__declOperator 8 0 235];
   A 6256 2 true [REDUCE sym__declOperator 8 0 235; SHIFT 4093];
   A 6259 2 true [REDUCE sym__declOperator 8 0 235; SHIFT 12561];
   A 6262 2 true [REDUCE sym__declOperator 8 0 235; SHIFT 4468];
   A 6265 2 true [REDUCE sym__declOperator 8 0 235; SHIFT 12824];
   A 6268 2 true [REDUCE sym__declOperator 8 0 235; SHIFT 4077];
   A 6271 2 true [REDUCE sym__declOperator 8 0 235; SHIFT 3867];
   A 6274 2 true [REDUCE sym__declOperator 8 0 235; SHIFT 4478];
   A 6277 2 true [REDUCE sym__declOperator 8 0 235; SHIFT 14986];
   A 6280 1 true [REDUCE sym__ppIf 1 0 0]; A 6282 1 false [REDUCE sym__ppIf 1 0 0];
   A 6284 2 true [REDUCE sym__declProc 4 0 27; SHIFT 4109];
   A 6287 1 true [REDUCE sym__declOperator 8 0 222];
   A 6289 2 true [REDUCE sym__declOperator 8 0 222; SHIFT 4109];
   A 6292 1 false [REDUCE sym__declOperator 8 0 222];
   A 6294 2 true [REDUCE sym__declOperator 8 0 222; SHIFT 4093];
   A 6297 2 true [REDUCE sym__declOperator 8 0 222; SHIFT 12561];
   A 6300 2 true [REDUCE sym__declOperator 8 0 222; SHIFT 4468];
   A 6303 2 true [REDUCE sym__declOperator 8 0 222; SHIFT 12824];
   A 6306 2 true [REDUCE sym__declOperator 8 0 222; SHIFT 4077];
   A 6309 2 true [REDUCE sym__declOperator 8 0 222; SHIFT 3867];
   A 6312 2 true [REDUCE sym__declOperator 8 0 222; SHIFT 4478];
   A 6315 2 true [REDUCE sym__declOperator 8 0 222; SHIFT 14986];
   A 6318 2 true [REDUCE sym__declProc 4 0 31; SHIFT 4109];
   A 6321 1 true [REDUCE sym__declOperator 7 0 196];
   A 6323 2 true [REDUCE sym__declOperator 7 0 196; SHIFT 4109];
   A 6326 1 false [REDUCE sym__declOperator 7 0 196];
   A 6328 2 true [REDUCE sym__declOperator 7 0 196; SHIFT 4093];
   A 6331 2 true [REDUCE sym__declOperator 7 0 196; SHIFT 12561];
   A 6334 2 true [REDUCE sym__declOperator 7 0 196; SHIFT 4468];
   A 6337 2 true [REDUCE sym__declOperator 7 0 196; SHIFT 12824];
   A 6340 2 true [REDUCE sym__declOperator 7 0 196; SHIFT 4077];
   A 6343 2 true [REDUCE sym__declOperator 7 0 196; SHIFT 3867];
   A 6346 2 true [REDUCE sym__declOperator 7 0 196; SHIFT 4478];
   A 6349 2 true [REDUCE sym__declOperator 7 0 196; SHIFT 14986];
   A 6352 2 true [REDUCE sym__declProc 7 0 180; SHIFT 4109];
   A 6355 1 true [REDUCE sym__declOperator 7 0 171];
   A 6357 2 true [REDUCE sym__declOperator 7 0 171; SHIFT 4109];
   A 6360 1 false [REDUCE sym__declOperator 7 0 171];
   A 6362 2 true [REDUCE sym__declOperator 7 0 171; SHIFT 4093];
   A 6365 2 true [REDUCE sym__declOperator 7 0 171; SHIFT 12561];
   A 6368 2 true [REDUCE sym__declOperator 7 0 171; SHIFT 4468];
   A 6371 2 true [REDUCE sym__declOperator 7 0 171; SHIFT 12824];
   A 6374 2 true [REDUCE sym__declOperator 7 0 171; SHIFT 4077];
   A 6377 2 true [REDUCE sym__declOperator 7 0 171; SHIFT 3867];
   A 6380 2 true [REDUCE sym__declOperator 7 0 171; SHIFT 4478];
   A 6383 2 true [REDUCE sym__declOperator 7 0 171; SHIFT 14986];
   A 6386 2 true [REDUCE sym__declProc 4 0 32; SHIFT 4109];
   A 6389 1 true [REDUCE sym__declOperator 7 0 172];
   A 6391 2 true [REDUCE sym__declOperator 7 0 172; SHIFT 4109];
   A 6394 1 false [REDUCE sym__declOperator 7 0 172];
   A 6396 2 true [REDUCE sym__declOperator 7 0 172; SHIFT 4093];
   A 6399 2 true [REDUCE sym__declOperator 7 0 172; SHIFT 12561];
   A 6402 2 true [REDUCE sym__declOperator 7 0 172; SHIFT 4468];
   A 6405 2 true [REDUCE sym__declOperator 7 0 172; SHIFT 12824];
   A 6408 2 true [REDUCE sym__declOperator 7 0 172; SHIFT 4077];
   A 6411 2 true [REDUCE sym__declOperator 7 0 172; SHIFT 3867];
   A 6414 2 true [REDUCE sym__declOperator 7 0 172; SHIFT 4478];
   A 6417 2 true [REDUCE sym__declOperator 7 0 172; SHIFT 14986];
   A 6420 2 true [REDUCE sym__declProc 7 0 166; SHIFT 4109];
   A 6423 2 true [REDUCE sym__declProc 5 0 56; SHIFT 4109];
   A 6426 1 true [REDUCE sym__declOperator 6 0 124];
   A 6428 2 true [REDUCE sym__declOperator 6 0 124; SHIFT 4109];
   A 6431 1 false [REDUCE sym__declOperator 6 0 124];
   A 6433 2 true [REDUCE sym__declOperator 6 0 124; SHIFT 4093];
   A 6436 2 true [REDUCE sym__declOperator 6 0 124; SHIFT 12561];
   A 6439 2 true [REDUCE sym__declOperator 6 0 124; SHIFT 4468];
   A 6442 2 true [REDUCE sym__declOperator 6 0 124; SHIFT 12824];
   A 6445 2 true [REDUCE sym__declOperator 6 0 124; SHIFT 4077];
   A 6448 2 true [REDUCE sym__declOperator 6 0 124; SHIFT 3867];
   A 6451 2 true [REDUCE sym__declOperator 6 0 124; SHIFT 4478];
   A 6454 2 true [REDUCE sym__declOperator 6 0 124; SHIFT 14986];
   A 6457 2 true [REDUCE sym__declProc 5 0 57; SHIFT 4109];
   A 6460 1 true [REDUCE sym__declOperator 9 0 268];
   A 6462 2 true [REDUCE sym__declOperator 9 0 268; SHIFT 4109];
   A 6465 1 false [REDUCE sym__declOperator 9 0 268];
   A 6467 2 true [REDUCE sym__declOperator 9 0 268; SHIFT 4093];
   A 6470 2 true [REDUCE sym__declOperator 9 0 268; SHIFT 12561];
   A 6473 2 true [REDUCE sym__declOperator 9 0 268; SHIFT 4468];
   A 6476 2 true [REDUCE sym__declOperator 9 0 268; SHIFT 12824];
   A 6479 2 true [REDUCE sym__declOperator 9 0 268; SHIFT 4077];
   A 6482 2 true [REDUCE sym__declOperator 9 0 268; SHIFT 3867];
   A 6485 2 true [REDUCE sym__declOperator 9 0 268; SHIFT 4478];
   A 6488 2 true [REDUCE sym__declOperator 9 0 268; SHIFT 14986];
   A 6491 1 true [REDUCE sym__declOperator 8 0 223];
   A 6493 2 true [REDUCE sym__declOperator 8 0 223; SHIFT 4109];
   A 6496 1 false [REDUCE sym__declOperator 8 0 223];
   A 6498 2 true [REDUCE sym__declOperator 8 0 223; SHIFT 4093];
   A 6501 2 true [REDUCE sym__declOperator 8 0 223; SHIFT 12561];
   A 6504 2 true [REDUCE sym__declOperator 8 0 223; SHIFT 4468];
   A 6507 2 true [REDUCE sym__declOperator 8 0 223; SHIFT 12824];
   A 6510 2 true [REDUCE sym__declOperator 8 0 223; SHIFT 4077];
   A 6513 2 true [REDUCE sym__declOperator 8 0 223; SHIFT 3867];
   A 6516 2 true [REDUCE sym__declOperator 8 0 223; SHIFT 4478];
   A 6519 2 true [REDUCE sym__declOperator 8 0 223; SHIFT 14986];
   A 6522 2 true [REDUCE sym__declProc 5 0 58; SHIFT 4109];
   A 6525 1 true [REDUCE sym_declVar 6 0 94];
   A 6527 2 true [REDUCE sym_declVar 6 0 94; SHIFT 3655];
   A 6530 1 false [REDUCE sym_declVar 6 0 94];
   A 6532 2 true [REDUCE sym_declVar 6 0 94; SHIFT 12561];
   A 6535 2 true [REDUCE sym_declVar 6 0 94; SHIFT 4468];
   A 6538 2 true [REDUCE sym_declVar 6 0 94; SHIFT 12824];
   A 6541 2 true [REDUCE sym_declVar 6 0 94; SHIFT 4077];
   A 6544 2 true [REDUCE sym_declVar 6 0 94; SHIFT 3867];
   A 6547 2 true [REDUCE sym_declVar 6 0 94; SHIFT 4478];
   A 6550 2 true [REDUCE sym_declVar 6 0 94; SHIFT 14986];
   A 6553 1 true [REDUCE sym__declOperator 4 0 26];
   A 6555 2 true [REDUCE sym__declOperator 4 0 26; SHIFT 4109];
   A 6558 1 false [REDUCE sym__declOperator 4 0 26];
   A 6560 2 true [REDUCE sym__declOperator 4 0 26; SHIFT 4093];
   A 6563 2 true [REDUCE sym__declOperator 4 0 26; SHIFT 12561];
   A 6566 2 true [REDUCE sym__declOperator 4 0 26; SHIFT 4468];
   A 6569 2 true [REDUCE sym__declOperator 4 0 26; SHIFT 12824];
   A 6572 2 true [REDUCE sym__declOperator 4 0 26; SHIFT 4077];
   A 6575 2 true [REDUCE sym__declOperator 4 0 26; SHIFT 3867];
   A 6578 2 true [REDUCE sym__declOperator 4 0 26; SHIFT 4478];
   A 6581 2 true [REDUCE sym__declOperator 4 0 26; SHIFT 14986];
   A 6584 1 true [REDUCE aux_sym_declVar_repeat2 2 0 55];
   A 6586 2 true [REDUCE aux_sym_declVar_repeat2 2 0 55; SHIFT_REPEAT 3655];
   A 6589 1 false [REDUCE aux_sym_declVar_repeat2 2 0 55];
   A 6591 2 true [REDUCE aux_sym_declVar_repeat2 2 0 55; SHIFT_REPEAT 12561];
   A 6594 2 true [REDUCE aux_sym_declVar_repeat2 2 0 55; SHIFT_REPEAT 4468];
   A 6597 2 true [REDUCE aux_sym_declVar_repeat2 2 0 55; SHIFT_REPEAT 12824];
   A 6600 2 true [REDUCE aux_sym_declVar_repeat2 2 0 55; SHIFT_REPEAT 3403];
   A 6603 2 true [REDUCE aux_sym_declVar_repeat2 2 0 55; SHIFT_REPEAT 4077];
   A 6606 2 true [REDUCE aux_sym_declVar_repeat2 2 0 55; SHIFT_REPEAT 3867];
   A 6609 2 true [REDUCE aux_sym_declVar_repeat2 2 0 55; SHIFT_REPEAT 4478];
   A 6612 2 true [REDUCE aux_sym_declVar_repeat2 2 0 55; SHIFT_REPEAT 14986];
   A 6615 2 true [REDUCE sym__declProc 5 0 59; SHIFT 4109];
   A 6618 1 true [REDUCE sym_declVar 6 0 197];
   A 6620 2 true [REDUCE sym_declVar 6 0 197; SHIFT 3655];
   A 6623 1 false [REDUCE sym_declVar 6 0 197];
   A 6625 2 true [REDUCE sym_declVar 6 0 197; SHIFT 12561];
   A 6628 2 true [REDUCE sym_declVar 6 0 197; SHIFT 4468];
   A 6631 2 true [REDUCE sym_declVar 6 0 197; SHIFT 12824];
   A 6634 2 true [REDUCE sym_declVar 6 0 197; SHIFT 4077];
   A 6637 2 true [REDUCE sym_declVar 6 0 197; SHIFT 3867];
   A 6640 2 true [REDUCE sym_declVar 6 0 197; SHIFT 4478];
   A 6643 2 true [REDUCE sym_declVar 6 0 197; SHIFT 14986];
   A 6646 1 true [REDUCE sym__declOperator 4 0 27];
   A 6648 2 true [REDUCE sym__declOperator 4 0 27; SHIFT 4109];
   A 6651 1 false [REDUCE sym__declOperator 4 0 27];
   A 6653 2 true [REDUCE sym__declOperator 4 0 27; SHIFT 4093];
   A 6656 2 true [REDUCE sym__declOperator 4 0 27; SHIFT 12561];
   A 6659 2 true [REDUCE sym__declOperator 4 0 27; SHIFT 4468];
   A 6662 2 true [REDUCE sym__declOperator 4 0 27; SHIFT 12824];
   A 6665 2 true [REDUCE sym__declOperator 4 0 27; SHIFT 4077];
   A 6668 2 true [REDUCE sym__declOperator 4 0 27; SHIFT 3867];
   A 6671 2 true [REDUCE sym__declOperator 4 0 27; SHIFT 4478];
   A 6674 2 true [REDUCE sym__declOperator 4 0 27; SHIFT 14986];
   A 6677 1 true [REDUCE sym_declVar 6 0 95];
   A 6679 2 true [REDUCE sym_declVar 6 0 95; SHIFT 3655];
   A 6682 1 false [REDUCE sym_declVar 6 0 95];
   A 6684 2 true [REDUCE sym_declVar 6 0 95; SHIFT 12561];
   A 6687 2 true [REDUCE sym_declVar 6 0 95; SHIFT 4468];
   A 6690 2 true [REDUCE sym_declVar 6 0 95; SHIFT 12824];
   A 6693 2 true [REDUCE sym_declVar 6 0 95; SHIFT 4077];
   A 6696 2 true [REDUCE sym_declVar 6 0 95; SHIFT 3867];
   A 6699 2 true [REDUCE sym_declVar 6 0 95; SHIFT 4478];
   A 6702 2 true [REDUCE sym_declVar 6 0 95; SHIFT 14986];
   A 6705 1 true [REDUCE sym__declOperator 8 0 237];
   A 6707 2 true [REDUCE sym__declOperator 8 0 237; SHIFT 4109];
   A 6710 1 false [REDUCE sym__declOperator 8 0 237];
   A 6712 2 true [REDUCE sym__declOperator 8 0 237; SHIFT 4093];
   A 6715 2 true [REDUCE sym__declOperator 8 0 237; SHIFT 12561];
   A 6718 2 true [REDUCE sym__declOperator 8 0 237; SHIFT 4468];
   A 6721 2 true [REDUCE sym__declOperator 8 0 237; SHIFT 12824];
   A 6724 2 true [REDUCE sym__declOperator 8 0 237; SHIFT 4077];
   A 6727 2 true [REDUCE sym__declOperator 8 0 237; SHIFT 3867];
   A 6730 2 true [REDUCE sym__declOperator 8 0 237; SHIFT 4478];
   A 6733 2 true [REDUCE sym__declOperator 8 0 237; SHIFT 14986];
   A 6736 1 true [REDUCE sym_declVar 6 0 198];
   A 6738 2 true [REDUCE sym_declVar 6 0 198; SHIFT 3655];
   A 6741 1 false [REDUCE sym_declVar 6 0 198];
   A 6743 2 true [REDUCE sym_declVar 6 0 198; SHIFT 12561];
   A 6746 2 true [REDUCE sym_declVar 6 0 198; SHIFT 4468];
   A 6749 2 true [REDUCE sym_declVar 6 0 198; SHIFT 12824];
   A 6752 2 true [REDUCE sym_declVar 6 0 198; SHIFT 4077];
   A 6755 2 true [REDUCE sym_declVar 6 0 198; SHIFT 3867];
   A 6758 2 true [REDUCE sym_declVar 6 0 198; SHIFT 4478];
   A 6761 2 true [REDUCE sym_declVar 6 0 198; SHIFT 14986];
   A 6764 2 true [REDUCE sym__declProc 5 0 66; SHIFT 4109];
   A 6767 1 true [REDUCE sym_declVar 6 0 124];
   A 6769 2 true [REDUCE sym_declVar 6 0 124; SHIFT 3655];
   A 6772 1 false [REDUCE sym_declVar 6 0 124];
   A 6774 2 true [REDUCE sym_declVar 6 0 124; SHIFT 12561];
   A 6777 2 true [REDUCE sym_declVar 6 0 124; SHIFT 4468];
   A 6780 2 true [REDUCE sym_declVar 6 0 124; SHIFT 12824];
   A 6783 2 true [REDUCE sym_declVar 6 0 124; SHIFT 4077];
   A 6786 2 true [REDUCE sym_declVar 6 0 124; SHIFT 3867];
   A 6789 2 true [REDUCE sym_declVar 6 0 124; SHIFT 4478];
   A 6792 2 true [REDUCE sym_declVar 6 0 124; SHIFT 14986];
   A 6795 1 true [REDUCE sym_declVar 5 0 150];
   A 6797 2 true [REDUCE sym_declVar 5 0 150; SHIFT 3655];
   A 6800 1 false [REDUCE sym_declVar 5 0 150];
   A 6802 2 true [REDUCE sym_declVar 5 0 150; SHIFT 12561];
   A 6805 2 true [REDUCE sym_declVar 5 0 150; SHIFT 4468];
   A 6808 2 true [REDUCE sym_declVar 5 0 150; SHIFT 12824];
   A 6811 2 true [REDUCE sym_declVar 5 0 150; SHIFT 4077];
   A 6814 2 true [REDUCE sym_declVar 5 0 150; SHIFT 3867];
   A 6817 2 true [REDUCE sym_declVar 5 0 150; SHIFT 4478];
   A 6820 2 true [REDUCE sym_declVar 5 0 150; SHIFT 14986];
   A 6823 1 true [REDUCE sym_declVar 6 0 132];
   A 6825 2 true [REDUCE sym_declVar 6 0 132; SHIFT 3655];
   A 6828 1 false [REDUCE sym_declVar 6 0 132];
   A 6830 2 true [REDUCE sym_declVar 6 0 132; SHIFT 12561];
   A 6833 2 true [REDUCE sym_declVar 6 0 132; SHIFT 4468];
   A 6836 2 true [REDUCE sym_declVar 6 0 132; SHIFT 12824];
   A 6839 2 true [REDUCE sym_declVar 6 0 132; SHIFT 4077];
   A 6842 2 true [REDUCE sym_declVar 6 0 132; SHIFT 3867];
   A 6845 2 true [REDUCE sym_declVar 6 0 132; SHIFT 4478];
   A 6848 2 true [REDUCE sym_declVar 6 0 132; SHIFT 14986];
   A 6851 2 true [REDUCE sym__declProc 5 0 68; SHIFT 4109];
   A 6854 1 true [REDUCE sym_declVar 6 0 199];
   A 6856 2 true [REDUCE sym_declVar 6 0 199; SHIFT 3655];
   A 6859 1 false [REDUCE sym_declVar 6 0 199];
   A 6861 2 true [REDUCE sym_declVar 6 0 199; SHIFT 12561];
   A 6864 2 true [REDUCE sym_declVar 6 0 199; SHIFT 4468];
   A 6867 2 true [REDUCE sym_declVar 6 0 199; SHIFT 12824];
   A 6870 2 true [REDUCE sym_declVar 6 0 199; SHIFT 4077];
   A 6873 2 true [REDUCE sym_declVar 6 0 199; SHIFT 3867];
   A 6876 2 true [REDUCE sym_declVar 6 0 199; SHIFT 4478];
   A 6879 2 true [REDUCE sym_declVar 6 0 199; SHIFT 14986];
   A 6882 1 true [REDUCE sym__declOperator 9 0 270];
   A 6884 2 true [REDUCE sym__declOperator 9 0 270; SHIFT 4109];
   A 6887 1 false [REDUCE sym__declOperator 9 0 270];
   A 6889 2 true [REDUCE sym__declOperator 9 0 270; SHIFT 4093];
   A 6892 2 true [REDUCE sym__declOperator 9 0 270; SHIFT 12561];
   A 6895 2 true [REDUCE sym__declOperator 9 0 270; SHIFT 4468];
   A 6898 2 true [REDUCE sym__declOperator 9 0 270; SHIFT 12824];
   A 6901 2 true [REDUCE sym__declOperator 9 0 270; SHIFT 4077];
   A 6904 2 true [REDUCE sym__declOperator 9 0 270; SHIFT 3867];
   A 6907 2 true [REDUCE sym__declOperator 9 0 270; SHIFT 4478];
   A 6910 2 true [REDUCE sym__declOperator 9 0 270; SHIFT 14986];
   A 6913 1 true [REDUCE sym_declVar 6 0 200];
   A 6915 2 true [REDUCE sym_declVar 6 0 200; SHIFT 3655];
   A 6918 1 false [REDUCE sym_declVar 6 0 200];
   A 6920 2 true [REDUCE sym_declVar 6 0 200; SHIFT 12561];
   A 6923 2 true [REDUCE sym_declVar 6 0 200; SHIFT 4468];
   A 6926 2 true [REDUCE sym_declVar 6 0 200; SHIFT 12824];
   A 6929 2 true [REDUCE sym_declVar 6 0 200; SHIFT 4077];
   A 6932 2 true [REDUCE sym_declVar 6 0 200; SHIFT 3867];
   A 6935 2 true [REDUCE sym_declVar 6 0 200; SHIFT 4478];
   A 6938 2 true [REDUCE sym_declVar 6 0 200; SHIFT 14986];
   A 6941 2 true [REDUCE sym__declProc 5 0 70; SHIFT 4109];
   A 6944 1 true [REDUCE sym_declVar 6 0 201];
   A 6946 2 true [REDUCE sym_declVar 6 0 201; SHIFT 3655];
   A 6949 1 false [REDUCE sym_declVar 6 0 201];
   A 6951 2 true [REDUCE sym_declVar 6 0 201; SHIFT 12561];
   A 6954 2 true [REDUCE sym_declVar 6 0 201; SHIFT 4468];
   A 6957 2 true [REDUCE sym_declVar 6 0 201; SHIFT 12824];
   A 6960 2 true [REDUCE sym_declVar 6 0 201; SHIFT 4077];
   A 6963 2 true [REDUCE sym_declVar 6 0 201; SHIFT 3867];
   A 6966 2 true [REDUCE sym_declVar 6 0 201; SHIFT 4478];
   A 6969 2 true [REDUCE sym_declVar 6 0 201; SHIFT 14986];
   A 6972 1 true [REDUCE sym_declVar 6 0 202];
   A 6974 2 true [REDUCE sym_declVar 6 0 202; SHIFT 3655];
   A 6977 1 false [REDUCE sym_declVar 6 0 202];
   A 6979 2 true [REDUCE sym_declVar 6 0 202; SHIFT 12561];
   A 6982 2 true [REDUCE sym_declVar 6 0 202; SHIFT 4468];
   A 6985 2 true [REDUCE sym_declVar 6 0 202; SHIFT 12824];
   A 6988 2 true [REDUCE sym_declVar 6 0 202; SHIFT 4077];
   A 6991 2 true [REDUCE sym_declVar 6 0 202; SHIFT 3867];
   A 6994 2 true [REDUCE sym_declVar 6 0 202; SHIFT 4478];
   A 6997 2 true [REDUCE sym_declVar 6 0 202; SHIFT 14986];
   A 7000 1 true [REDUCE sym__declOperator 6 0 125];
   A 7002 2 true [REDUCE sym__declOperator 6 0 125; SHIFT 4109];
   A 7005 1 false [REDUCE sym__declOperator 6 0 125];
   A 7007 2 true [REDUCE sym__declOperator 6 0 125; SHIFT 4093];
   A 7010 2 true [REDUCE sym__declOperator 6 0 125; SHIFT 12561];
   A 7013 2 true [REDUCE sym__declOperator 6 0 125; SHIFT 4468];
   A 7016 2 true [REDUCE sym__declOperator 6 0 125; SHIFT 12824];
   A 7019 2 true [REDUCE sym__declOperator 6 0 125; SHIFT 4077];
   A 7022 2 true [REDUCE sym__declOperator 6 0 125; SHIFT 3867];
   A 7025 2 true [REDUCE sym__declOperator 6 0 125; SHIFT 4478];
   A 7028 2 true [REDUCE sym__declOperator 6 0 125; SHIFT 14986];
   A 7031 1 true [REDUCE sym_declVar 6 0 203];
   A 7033 2 true [REDUCE sym_declVar 6 0 203; SHIFT 3655];
   A 7036 1 false [REDUCE sym_declVar 6 0 203];
   A 7038 2 true [REDUCE sym_declVar 6 0 203; SHIFT 12561];
   A 7041 2 true [REDUCE sym_declVar 6 0 203; SHIFT 4468];
   A 7044 2 true [REDUCE sym_declVar 6 0 203; SHIFT 12824];
   A 7047 2 true [REDUCE sym_declVar 6 0 203; SHIFT 4077];
   A 7050 2 true [REDUCE sym_declVar 6 0 203; SHIFT 3867];
   A 7053 2 true [REDUCE sym_declVar 6 0 203; SHIFT 4478];
   A 7056 2 true [REDUCE sym_declVar 6 0 203; SHIFT 14986];
   A 7059 1 true [REDUCE sym__declOperator 4 0 31];
   A 7061 2 true [REDUCE sym__declOperator 4 0 31; SHIFT 4109];
   A 7064 1 false [REDUCE sym__declOperator 4 0 31];
   A 7066 2 true [REDUCE sym__declOperator 4 0 31; SHIFT 4093];
   A 7069 2 true [REDUCE sym__declOperator 4 0 31; SHIFT 12561];
   A 7072 2 true [REDUCE sym__declOperator 4 0 31; SHIFT 4468];
   A 7075 2 true [REDUCE sym__declOperator 4 0 31; SHIFT 12824];
   A 7078 2 true [REDUCE sym__declOperator 4 0 31; SHIFT 4077];
   A 7081 2 true [REDUCE sym__declOperator 4 0 31; SHIFT 3867];
   A 7084 2 true [REDUCE sym__declOperator 4 0 31; SHIFT 4478];
   A 7087 2 true [REDUCE sym__declOperator 4 0 31; SHIFT 14986];
   A 7090 1 true [REDUCE sym_declVar 6 0 204];
   A 7092 2 true [REDUCE sym_declVar 6 0 204; SHIFT 3655];
   A 7095 1 false [REDUCE sym_declVar 6 0 204];
   A 7097 2 true [REDUCE sym_declVar 6 0 204; SHIFT 12561];
   A 7100 2 true [REDUCE sym_declVar 6 0 204; SHIFT 4468];
   A 7103 2 true [REDUCE sym_declVar 6 0 204; SHIFT 12824];
   A 7106 2 true [REDUCE sym_declVar 6 0 204; SHIFT 4077];
   A 7109 2 true [REDUCE sym_declVar 6 0 204; SHIFT 3867];
   A 7112 2 true [REDUCE sym_declVar 6 0 204; SHIFT 4478];
   A 7115 2 true [REDUCE sym_declVar 6 0 204; SHIFT 14986];
   A 7118 1 true [REDUCE sym_declVar 6 0 205];
   A 7120 2 true [REDUCE sym_declVar 6 0 205; SHIFT 3655];
   A 7123 1 false [REDUCE sym_declVar 6 0 205];
   A 7125 2 true [REDUCE sym_declVar 6 0 205; SHIFT 12561];
   A 7128 2 true [REDUCE sym_declVar 6 0 205; SHIFT 4468];
   A 7131 2 true [REDUCE sym_declVar 6 0 205; SHIFT 12824];
   A 7134 2 true [REDUCE sym_declVar 6 0 205; SHIFT 4077];
   A 7137 2 true [REDUCE sym_declVar 6 0 205; SHIFT 3867];
   A 7140 2 true [REDUCE sym_declVar 6 0 205; SHIFT 4478];
   A 7143 2 true [REDUCE sym_declVar 6 0 205; SHIFT 14986];
   A 7146 1 true [REDUCE sym__declOperator 9 0 271];
   A 7148 2 true [REDUCE sym__declOperator 9 0 271; SHIFT 4109];
   A 7151 1 false [REDUCE sym__declOperator 9 0 271];
   A 7153 2 true [REDUCE sym__declOperator 9 0 271; SHIFT 4093];
   A 7156 2 true [REDUCE sym__declOperator 9 0 271; SHIFT 12561];
   A 7159 2 true [REDUCE sym__declOperator 9 0 271; SHIFT 4468];
   A 7162 2 true [REDUCE sym__declOperator 9 0 271; SHIFT 12824];
   A 7165 2 true [REDUCE sym__declOperator 9 0 271; SHIFT 4077];
   A 7168 2 true [REDUCE sym__declOperator 9 0 271; SHIFT 3867];
   A 7171 2 true [REDUCE sym__declOperator 9 0 271; SHIFT 4478];
   A 7174 2 true [REDUCE sym__declOperator 9 0 271; SHIFT 14986];
   A 7177 1 true [REDUCE sym_declVar 6 0 206];
   A 7179 2 true [REDUCE sym_declVar 6 0 206; SHIFT 3655];
   A 7182 1 false [REDUCE sym_declVar 6 0 206];
   A 7184 2 true [REDUCE sym_declVar 6 0 206; SHIFT 12561];
   A 7187 2 true [REDUCE sym_declVar 6 0 206; SHIFT 4468];
   A 7190 2 true [REDUCE sym_declVar 6 0 206; SHIFT 12824];
   A 7193 2 true [REDUCE sym_declVar 6 0 206; SHIFT 4077];
   A 7196 2 true [REDUCE sym_declVar 6 0 206; SHIFT 3867];
   A 7199 2 true [REDUCE sym_declVar 6 0 206; SHIFT 4478];
   A 7202 2 true [REDUCE sym_declVar 6 0 206; SHIFT 14986];
   A 7205 1 true [REDUCE sym__declOperator 4 0 32];
   A 7207 2 true [REDUCE sym__declOperator 4 0 32; SHIFT 4109];
   A 7210 1 false [REDUCE sym__declOperator 4 0 32];
   A 7212 2 true [REDUCE sym__declOperator 4 0 32; SHIFT 4093];
   A 7215 2 true [REDUCE sym__declOperator 4 0 32; SHIFT 12561];
   A 7218 2 true [REDUCE sym__declOperator 4 0 32; SHIFT 4468];
   A 7221 2 true [REDUCE sym__declOperator 4 0 32; SHIFT 12824];
   A 7224 2 true [REDUCE sym__declOperator 4 0 32; SHIFT 4077];
   A 7227 2 true [REDUCE sym__declOperator 4 0 32; SHIFT 3867];
   A 7230 2 true [REDUCE sym__declOperator 4 0 32; SHIFT 4478];
   A 7233 2 true [REDUCE sym__declOperator 4 0 32; SHIFT 14986];
   A 7236 1 true [REDUCE sym__declOperator 4 0 24];
   A 7238 2 true [REDUCE sym__declOperator 4 0 24; SHIFT 4109];
   A 7241 1 false [REDUCE sym__declOperator 4 0 24];
   A 7243 2 true [REDUCE sym__declOperator 4 0 24; SHIFT 4093];
   A 7246 2 true [REDUCE sym__declOperator 4 0 24; SHIFT 12561];
   A 7249 2 true [REDUCE sym__declOperator 4 0 24; SHIFT 4468];
   A 7252 2 true [REDUCE sym__declOperator 4 0 24; SHIFT 12824];
   A 7255 2 true [REDUCE sym__declOperator 4 0 24; SHIFT 4077];
   A 7258 2 true [REDUCE sym__declOperator 4 0 24; SHIFT 3867];
   A 7261 2 true [REDUCE sym__declOperator 4 0 24; SHIFT 4478];
   A 7264 2 true [REDUCE sym__declOperator 4 0 24; SHIFT 14986];
   A 7267 2 true [REDUCE sym__declProc 5 0 71; SHIFT 4109];
   A 7270 2 true [REDUCE sym__declProc 6 0 110; SHIFT 4109];
   A 7273 2 true [REDUCE sym__declProc 6 0 111; SHIFT 4109];
   A 7276 2 true [REDUCE sym__declProc 6 0 112; SHIFT 4109];
   A 7279 1 true [REDUCE sym__declOperator 8 0 224];
   A 7281 2 true [REDUCE sym__declOperator 8 0 224; SHIFT 4109];
   A 7284 1 false [REDUCE sym__declOperator 8 0 224];
   A 7286 2 true [REDUCE sym__declOperator 8 0 224; SHIFT 4093];
   A 7289 2 true [REDUCE sym__declOperator 8 0 224; SHIFT 12561];
   A 7292 2 true [REDUCE sym__declOperator 8 0 224; SHIFT 4468];
   A 7295 2 true [REDUCE sym__declOperator 8 0 224; SHIFT 12824];
   A 7298 2 true [REDUCE sym__declOperator 8 0 224; SHIFT 4077];
   A 7301 2 true [REDUCE sym__declOperator 8 0 224; SHIFT 3867];
   A 7304 2 true [REDUCE sym__declOperator 8 0 224; SHIFT 4478];
   A 7307 2 true [REDUCE sym__declOperator 8 0 224; SHIFT 14986];
   A 7310 2 true [REDUCE sym__declProc 6 0 113; SHIFT 4109];
   A 7313 2 true [REDUCE sym__declProc 7 0 185; SHIFT 4109];
   A 7316 2 true [REDUCE sym__declProc 6 0 114; SHIFT 4109];
   A 7319 1 true [REDUCE sym__declOperator 8 0 231];
   A 7321 2 true [REDUCE sym__declOperator 8 0 231; SHIFT 4109];
   A 7324 1 false [REDUCE sym__declOperator 8 0 231];
   A 7326 2 true [REDUCE sym__declOperator 8 0 231; SHIFT 4093];
   A 7329 2 true [REDUCE sym__declOperator 8 0 231; SHIFT 12561];
   A 7332 2 true [REDUCE sym__declOperator 8 0 231; SHIFT 4468];
   A 7335 2 true [REDUCE sym__declOperator 8 0 231; SHIFT 12824];
   A 7338 2 true [REDUCE sym__declOperator 8 0 231; SHIFT 4077];
   A 7341 2 true [REDUCE sym__declOperator 8 0 231; SHIFT 3867];
   A 7344 2 true [REDUCE sym__declOperator 8 0 231; SHIFT 4478];
   A 7347 2 true [REDUCE sym__declOperator 8 0 231; SHIFT 14986];
   A 7350 2 true [REDUCE sym__declProc 6 0 115; SHIFT 4109];
   A 7353 2 true [REDUCE sym__declProc 6 0 125; SHIFT 4109];
   A 7356 1 true [REDUCE sym_declVar 9 0 295];
   A 7358 2 true [REDUCE sym_declVar 9 0 295; SHIFT 3655];
   A 7361 1 false [REDUCE sym_declVar 9 0 295];
   A 7363 2 true [REDUCE sym_declVar 9 0 295; SHIFT 12561];
   A 7366 2 true [REDUCE sym_declVar 9 0 295; SHIFT 4468];
   A 7369 2 true [REDUCE sym_declVar 9 0 295; SHIFT 12824];
   A 7372 2 true [REDUCE sym_declVar 9 0 295; SHIFT 4077];
   A 7375 2 true [REDUCE sym_declVar 9 0 295; SHIFT 3867];
   A 7378 2 true [REDUCE sym_declVar 9 0 295; SHIFT 4478];
   A 7381 2 true [REDUCE sym_declVar 9 0 295; SHIFT 14986]; A 7384 1 true [SHIFT 6231];
   A 7386 1 true [SHIFT 5766]; A 7388 1 true [SHIFT 6038]; A 7390 1 true [SHIFT 6297];
   A 7392 1 true [REDUCE sym_declProp 7 0 167];
   A 7394 2 true [REDUCE sym_declProp 7 0 167; SHIFT 3501];
   A 7397 1 false [REDUCE sym_declProp 7 0 167];
   A 7399 2 true [REDUCE sym_declProp 7 0 167; SHIFT 12561];
   A 7402 2 true [REDUCE sym_declProp 7 0 167; SHIFT 4468];
   A 7405 2 true [REDUCE sym_declProp 7 0 167; SHIFT 12824];
   A 7408 2 true [REDUCE sym_declProp 7 0 167; SHIFT 4077];
   A 7411 2 true [REDUCE sym_declProp 7 0 167; SHIFT 3867];
   A 7414 2 true [REDUCE sym_declProp 7 0 167; SHIFT 4478];
   A 7417 2 true [REDUCE sym_declProp 7 0 167; SHIFT 14986]; A 7420 1 true [SHIFT 5956];
   A 7422 1 true [SHIFT 3683]; A 7424 1 false [SHIFT 5246]; A 7426 1 true [SHIFT 6416];
   A 7428 1 true [SHIFT 12396]; A 7430 1 false [SHIFT 7250]; A 7432 1 true [SHIFT 7250];
   A 7434 1 false [SHIFT 5462]; A 7436 1 true [SHIFT 5462]; A 7438 1 true [SHIFT 7153];
   A 7440 1 true [SHIFT 15494]; A 7442 1 true [SHIFT 7200]; A 7444 1 true [SHIFT 7151];
   A 7446 1 true [SHIFT 11392]; A 7448 1 true [SHIFT 501]; A 7450 1 true [SHIFT 5414];
   A 7452 1 true [SHIFT 14731]; A 7454 1 true [SHIFT 3786]; A 7456 1 true [SHIFT 6252];
   A 7458 1 true [SHIFT 13881]; A 7460 1 true [SHIFT 5170]; A 7462 1 true [SHIFT 7152];
   A 7464 1 true [SHIFT 3441]; A 7466 1 true [SHIFT 422]; A 7468 1 true [SHIFT 15240];
   A 7470 1 true [SHIFT 156]; A 7472 1 true [SHIFT 15703]; A 7474 1 true [SHIFT 5117];
   A 7476 1 true [SHIFT 4162]; A 7478 1 true [SHIFT 5958]; A 7480 1 true [SHIFT 5971];
   A 7482 1 true [SHIFT 5990]; A 7484 1 true [SHIFT 5994]; A 7486 1 true [SHIFT 5996];
   A 7488 1 true [SHIFT 5889]; A 7490 1 true [REDUCE sym_declProp 7 0 260];
   A 7492 2 true [REDUCE sym_declProp 7 0 260; SHIFT 3501];
   A 7495 1 false [REDUCE sym_declProp 7 0 260];
   A 7497 2 true [REDUCE sym_declProp 7 0 260; SHIFT 12561];
   A 7500 2 true [REDUCE sym_declProp 7 0 260; SHIFT 4468];
   A 7503 2 true [REDUCE sym_declProp 7 0 260; SHIFT 12824];
   A 7506 2 true [REDUCE sym_declProp 7 0 260; SHIFT 4077];
   A 7509 2 true [REDUCE sym_declProp 7 0 260; SHIFT 3867];
   A 7512 2 true [REDUCE sym_declProp 7 0 260; SHIFT 4478];
   A 7515 2 true [REDUCE sym_declProp 7 0 260; SHIFT 14986];
   A 7518 1 true [REDUCE sym_declProp 8 0 285];
   A 7520 2 true [REDUCE sym_declProp 8 0 285; SHIFT 3501];
   A 7523 1 false [REDUCE sym_declProp 8 0 285];
   A 7525 2 true [REDUCE sym_declProp 8 0 285; SHIFT 12561];
   A 7528 2 true [REDUCE sym_declProp 8 0 285; SHIFT 4468];
   A 7531 2 true [REDUCE sym_declProp 8 0 285; SHIFT 12824];
   A 7534 2 true [REDUCE sym_declProp 8 0 285; SHIFT 4077];
   A 7537 2 true [REDUCE sym_declProp 8 0 285; SHIFT 3867];
   A 7540 2 true [REDUCE sym_declProp 8 0 285; SHIFT 4478];
   A 7543 2 true [REDUCE sym_declProp 8 0 285; SHIFT 14986];
   A 7546 1 true [REDUCE sym_declType 5 0 66];
   A 7548 2 true [REDUCE sym_declType 5 0 66; SHIFT 3501];
   A 7551 1 false [REDUCE sym_declType 5 0 66];
   A 7553 2 true [REDUCE sym_declType 5 0 66; SHIFT 12561];
   A 7556 2 true [REDUCE sym_declType 5 0 66; SHIFT 4468];
   A 7559 2 true [REDUCE sym_declType 5 0 66; SHIFT 12824];
   A 7562 2 true [REDUCE sym_declType 5 0 66; SHIFT 4077];
   A 7565 2 true [REDUCE sym_declType 5 0 66; SHIFT 3867];
   A 7568 2 true [REDUCE sym_declType 5 0 66; SHIFT 4478];
   A 7571 2 true [REDUCE sym_declType 5 0 66; SHIFT 14986];
   A 7574 1 true [REDUCE sym_declType 5 0 158];
   A 7576 2 true [REDUCE sym_declType 5 0 158; SHIFT 3501];
   A 7579 1 false [REDUCE sym_declType 5 0 158];
   A 7581 2 true [REDUCE sym_declType 5 0 158; SHIFT 12561];
   A 7584 2 true [REDUCE sym_declType 5 0 158; SHIFT 4468];
   A 7587 2 true [REDUCE sym_declType 5 0 158; SHIFT 12824];
   A 7590 2 true [REDUCE sym_declType 5 0 158; SHIFT 4077];
   A 7593 2 true [REDUCE sym_declType 5 0 158; SHIFT 3867];
   A 7596 2 true [REDUCE sym_declType 5 0 158; SHIFT 4478];
   A 7599 2 true [REDUCE sym_declType 5 0 158; SHIFT 14986];
   A 7602 1 true [REDUCE sym_declType 5 0 150];
   A 7604 2 true [REDUCE sym_declType 5 0 150; SHIFT 3501];
   A 7607 1 false [REDUCE sym_declType 5 0 150];
   A 7609 2 true [REDUCE sym_declType 5 0 150; SHIFT 12561];
   A 7612 2 true [REDUCE sym_declType 5 0 150; SHIFT 4468];
   A 7615 2 true [REDUCE sym_declType 5 0 150; SHIFT 12824];
   A 7618 2 true [REDUCE sym_declType 5 0 150; SHIFT 4077];
   A 7621 2 true [REDUCE sym_declType 5 0 150; SHIFT 3867];
   A 7624 2 true [REDUCE sym_declType 5 0 150; SHIFT 4478];
   A 7627 2 true [REDUCE sym_declType 5 0 150; SHIFT 14986];
   A 7630 1 true [REDUCE sym_declProp 8 0 223];
   A 7632 2 true [REDUCE sym_declProp 8 0 223; SHIFT 3501];
   A 7635 1 false [REDUCE sym_declProp 8 0 223];
   A 7637 2 true [REDUCE sym_declProp 8 0 223; SHIFT 12561];
   A 7640 2 true [REDUCE sym_declProp 8 0 223; SHIFT 4468];
   A 7643 2 true [REDUCE sym_declProp 8 0 223; SHIFT 12824];
   A 7646 2 true [REDUCE sym_declProp 8 0 223; SHIFT 4077];
   A 7649 2 true [REDUCE sym_declProp 8 0 223; SHIFT 3867];
   A 7652 2 true [REDUCE sym_declProp 8 0 223; SHIFT 4478];
   A 7655 2 true [REDUCE sym_declProp 8 0 223; SHIFT 14986];
   A 7658 1 true [REDUCE sym_declProp 8 0 286];
   A 7660 2 true [REDUCE sym_declProp 8 0 286; SHIFT 3501];
   A 7663 1 false [REDUCE sym_declProp 8 0 286];
   A 7665 2 true [REDUCE sym_declProp 8 0 286; SHIFT 12561];
   A 7668 2 true [REDUCE sym_declProp 8 0 286; SHIFT 4468];
   A 7671 2 true [REDUCE sym_declProp 8 0 286; SHIFT 12824];
   A 7674 2 true [REDUCE sym_declProp 8 0 286; SHIFT 4077];
   A 7677 2 true [REDUCE sym_declProp 8 0 286; SHIFT 3867];
   A 7680 2 true [REDUCE sym_declProp 8 0 286; SHIFT 4478];
   A 7683 2 true [REDUCE sym_declProp 8 0 286; SHIFT 14986];
   A 7686 1 true [REDUCE sym_declProp 8 0 287];
   A 7688 2 true [REDUCE sym_declProp 8 0 287; SHIFT 3501];
   A 7691 1 false [REDUCE sym_declProp 8 0 287];
   A 7693 2 true [REDUCE sym_declProp 8 0 287; SHIFT 12561];
   A 7696 2 true [REDUCE sym_declProp 8 0 287; SHIFT 4468];
   A 7699 2 true [REDUCE sym_declProp 8 0 287; SHIFT 12824];
   A 7702 2 true [REDUCE sym_declProp 8 0 287; SHIFT 4077];
   A 7705 2 true [REDUCE sym_declProp 8 0 287; SHIFT 3867];
   A 7708 2 true [REDUCE sym_declProp 8 0 287; SHIFT 4478];
   A 7711 2 true [REDUCE sym_declProp 8 0 287; SHIFT 14986];
   A 7714 1 true [REDUCE sym_declProp 8 0 218];
   A 7716 2 true [REDUCE sym_declProp 8 0 218; SHIFT 3501];
   A 7719 1 false [REDUCE sym_declProp 8 0 218];
   A 7721 2 true [REDUCE sym_declProp 8 0 218; SHIFT 12561];
   A 7724 2 true [REDUCE sym_declProp 8 0 218; SHIFT 4468];
   A 7727 2 true [REDUCE sym_declProp 8 0 218; SHIFT 12824];
   A 7730 2 true [REDUCE sym_declProp 8 0 218; SHIFT 4077];
   A 7733 2 true [REDUCE sym_declProp 8 0 218; SHIFT 3867];
   A 7736 2 true [REDUCE sym_declProp 8 0 218; SHIFT 4478];
   A 7739 2 true [REDUCE sym_declProp 8 0 218; SHIFT 14986];
   A 7742 1 true [REDUCE sym_declProp 8 0 288];
   A 7744 2 true [REDUCE sym_declProp 8 0 288; SHIFT 3501];
   A 7747 1 false [REDUCE sym_declProp 8 0 288];
   A 7749 2 true [REDUCE sym_declProp 8 0 288; SHIFT 12561];
   A 7752 2 true [REDUCE sym_declProp 8 0 288; SHIFT 4468];
   A 7755 2 true [REDUCE sym_declProp 8 0 288; SHIFT 12824];
   A 7758 2 true [REDUCE sym_declProp 8 0 288; SHIFT 4077];
   A 7761 2 true [REDUCE sym_declProp 8 0 288; SHIFT 3867];
   A 7764 2 true [REDUCE sym_declProp 8 0 288; SHIFT 4478];
   A 7767 2 true [REDUCE sym_declProp 8 0 288; SHIFT 14986];
   A 7770 1 true [REDUCE sym_declProp 8 0 220];
   A 7772 2 true [REDUCE sym_declProp 8 0 220; SHIFT 3501];
   A 7775 1 false [REDUCE sym_declProp 8 0 220];
   A 7777 2 true [REDUCE sym_declProp 8 0 220; SHIFT 12561];
   A 7780 2 true [REDUCE sym_declProp 8 0 220; SHIFT 4468];
   A 7783 2 true [REDUCE sym_declProp 8 0 220; SHIFT 12824];
   A 7786 2 true [REDUCE sym_declProp 8 0 220; SHIFT 4077];
   A 7789 2 true [REDUCE sym_declProp 8 0 220; SHIFT 3867];
   A 7792 2 true [REDUCE sym_declProp 8 0 220; SHIFT 4478];
   A 7795 2 true [REDUCE sym_declProp 8 0 220; SHIFT 14986];
   A 7798 1 true [REDUCE sym_declProp 8 0 289];
   A 7800 2 true [REDUCE sym_declProp 8 0 289; SHIFT 3501];
   A 7803 1 false [REDUCE sym_declProp 8 0 289];
   A 7805 2 true [REDUCE sym_declProp 8 0 289; SHIFT 12561];
   A 7808 2 true [REDUCE sym_declProp 8 0 289; SHIFT 4468];
   A 7811 2 true [REDUCE sym_declProp 8 0 289; SHIFT 12824];
   A 7814 2 true [REDUCE sym_declProp 8 0 289; SHIFT 4077];
   A 7817 2 true [REDUCE sym_declProp 8 0 289; SHIFT 3867];
   A 7820 2 true [REDUCE sym_declProp 8 0 289; SHIFT 4478];
   A 7823 2 true [REDUCE sym_declProp 8 0 289; SHIFT 14986];
   A 7826 1 true [REDUCE sym_declProp 9 0 300];
   A 7828 2 true [REDUCE sym_declProp 9 0 300; SHIFT 3501];
   A 7831 1 false [REDUCE sym_declProp 9 0 300];
   A 7833 2 true [REDUCE sym_declProp 9 0 300; SHIFT 12561];
   A 7836 2 true [REDUCE sym_declProp 9 0 300; SHIFT 4468];
   A 7839 2 true [REDUCE sym_declProp 9 0 300; SHIFT 12824];
   A 7842 2 true [REDUCE sym_declProp 9 0 300; SHIFT 4077];
   A 7845 2 true [REDUCE sym_declProp 9 0 300; SHIFT 3867];
   A 7848 2 true [REDUCE sym_declProp 9 0 300; SHIFT 4478];
   A 7851 2 true [REDUCE sym_declProp 9 0 300; SHIFT 14986];
   A 7854 1 true [REDUCE sym_declProp 9 0 301];
   A 7856 2 true [REDUCE sym_declProp 9 0 301; SHIFT 3501];
   A 7859 1 false [REDUCE sym_declProp 9 0 301];
   A 7861 2 true [REDUCE sym_declProp 9 0 301; SHIFT 12561];
   A 7864 2 true [REDUCE sym_declProp 9 0 301; SHIFT 4468];
   A 7867 2 true [REDUCE sym_declProp 9 0 301; SHIFT 12824];
   A 7870 2 true [REDUCE sym_declProp 9 0 301; SHIFT 4077];
   A 7873 2 true [REDUCE sym_declProp 9 0 301; SHIFT 3867];
   A 7876 2 true [REDUCE sym_declProp 9 0 301; SHIFT 4478];
   A 7879 2 true [REDUCE sym_declProp 9 0 301; SHIFT 14986];
   A 7882 1 true [REDUCE sym_declProp 9 0 262];
   A 7884 2 true [REDUCE sym_declProp 9 0 262; SHIFT 3501];
   A 7887 1 false [REDUCE sym_declProp 9 0 262];
   A 7889 2 true [REDUCE sym_declProp 9 0 262; SHIFT 12561];
   A 7892 2 true [REDUCE sym_declProp 9 0 262; SHIFT 4468];
   A 7895 2 true [REDUCE sym_declProp 9 0 262; SHIFT 12824];
   A 7898 2 true [REDUCE sym_declProp 9 0 262; SHIFT 4077];
   A 7901 2 true [REDUCE sym_declProp 9 0 262; SHIFT 3867];
   A 7904 2 true [REDUCE sym_declProp 9 0 262; SHIFT 4478];
   A 7907 2 true [REDUCE sym_declProp 9 0 262; SHIFT 14986];
   A 7910 1 true [REDUCE sym_declProp 9 0 302];
   A 7912 2 true [REDUCE sym_declProp 9 0 302; SHIFT 3501];
   A 7915 1 false [REDUCE sym_declProp 9 0 302];
   A 7917 2 true [REDUCE sym_declProp 9 0 302; SHIFT 12561];
   A 7920 2 true [REDUCE sym_declProp 9 0 302; SHIFT 4468];
   A 7923 2 true [REDUCE sym_declProp 9 0 302; SHIFT 12824];
   A 7926 2 true [REDUCE sym_declProp 9 0 302; SHIFT 4077];
   A 7929 2 true [REDUCE sym_declProp 9 0 302; SHIFT 3867];
   A 7932 2 true [REDUCE sym_declProp 9 0 302; SHIFT 4478];
   A 7935 2 true [REDUCE sym_declProp 9 0 302; SHIFT 14986];
   A 7938 1 true [REDUCE sym_declProp 10 0 305];
   A 7940 2 true [REDUCE sym_declProp 10 0 305; SHIFT 3501];
   A 7943 1 false [REDUCE sym_declProp 10 0 305];
   A 7945 2 true [REDUCE sym_declProp 10 0 305; SHIFT 12561];
   A 7948 2 true [REDUCE sym_declProp 10 0 305; SHIFT 4468];
   A 7951 2 true [REDUCE sym_declProp 10 0 305; SHIFT 12824];
   A 7954 2 true [REDUCE sym_declProp 10 0 305; SHIFT 4077];
   A 7957 2 true [REDUCE sym_declProp 10 0 305; SHIFT 3867];
   A 7960 2 true [REDUCE sym_declProp 10 0 305; SHIFT 4478];
   A 7963 2 true [REDUCE sym_declProp 10 0 305; SHIFT 14986]; A 7966 1 true [SHIFT 9069];
   A 7968 1 true [SHIFT 3639]; A 7970 1 false [SHIFT 5222]; A 7972 1 true [SHIFT 6388];
   A 7974 1 true [SHIFT 12217]; A 7976 1 false [SHIFT 7299]; A 7978 1 true [SHIFT 7299];
   A 7980 1 false [SHIFT 5131]; A 7982 1 true [SHIFT 5131]; A 7984 1 true [SHIFT 7138];
   A 7986 1 true [SHIFT 15984]; A 7988 1 true [SHIFT 7198]; A 7990 1 true [SHIFT 7136];
   A 7992 1 true [REDUCE sym_caseCaseTr 1 0 72]; A 7994 1 true [SHIFT 11531];
   A 7996 1 true [SHIFT 655]; A 7998 1 true [SHIFT 5380]; A 8000 1 true [SHIFT 14613];
   A 8002 1 true [SHIFT 3775]; A 8004 1 true [SHIFT 6219]; A 8006 1 true [SHIFT 13533];
   A 8008 1 true [SHIFT 4937]; A 8010 1 true [SHIFT 7137]; A 8012 1 true [SHIFT 3445];
   A 8014 1 true [SHIFT 398]; A 8016 1 true [SHIFT 15179]; A 8018 1 true [SHIFT 141];
   A 8020 1 true [SHIFT 15676]; A 8022 1 true [SHIFT 4938]; A 8024 1 true [SHIFT 4129];
   A 8026 1 true [SHIFT 5935]; A 8028 1 true [SHIFT 950];
   A 8030 1 true [REDUCE sym_declConst 6 0 197];
   A 8032 2 true [REDUCE sym_declConst 6 0 197; SHIFT 3501];
   A 8035 1 false [REDUCE sym_declConst 6 0 197];
   A 8037 2 true [REDUCE sym_declConst 6 0 197; SHIFT 12561];
   A 8040 2 true [REDUCE sym_declConst 6 0 197; SHIFT 4468];
   A 8043 2 true [REDUCE sym_declConst 6 0 197; SHIFT 12824];
   A 8046 2 true [REDUCE sym_declConst 6 0 197; SHIFT 4077];
   A 8049 2 true [REDUCE sym_declConst 6 0 197; SHIFT 3867];
   A 8052 2 true [REDUCE sym_declConst 6 0 197; SHIFT 4478];
   A 8055 2 true [REDUCE sym_declConst 6 0 197; SHIFT 14986];
   A 8058 1 true [REDUCE sym_declConst 6 0 132];
   A 8060 2 true [REDUCE sym_declConst 6 0 132; SHIFT 3501];
   A 8063 1 false [REDUCE sym_declConst 6 0 132];
   A 8065 2 true [REDUCE sym_declConst 6 0 132; SHIFT 12561];
   A 8068 2 true [REDUCE sym_declConst 6 0 132; SHIFT 4468];
   A 8071 2 true [REDUCE sym_declConst 6 0 132; SHIFT 12824];
   A 8074 2 true [REDUCE sym_declConst 6 0 132; SHIFT 4077];
   A 8077 2 true [REDUCE sym_declConst 6 0 132; SHIFT 3867];
   A 8080 2 true [REDUCE sym_declConst 6 0 132; SHIFT 4478];
   A 8083 2 true [REDUCE sym_declConst 6 0 132; SHIFT 14986]; A 8086 1 true [SHIFT 6011];
   A 8088 1 true [SHIFT 11364]; A 8090 1 true [SHIFT 670]; A 8092 1 true [SHIFT 5399];
   A 8094 1 true [SHIFT 3777]; A 8096 1 true [SHIFT 13999]; A 8098 1 true [SHIFT 4994];
   A 8100 1 true [SHIFT 3390]; A 8102 1 true [SHIFT 410]; A 8104 1 true [SHIFT 147];
   A 8106 1 true [SHIFT 4997]; A 8108 1 true [SHIFT 4140];
   A 8110 1 true [REDUCE sym_declProp 4 0 24];
   A 8112 2 true [REDUCE sym_declProp 4 0 24; SHIFT 3501];
   A 8115 1 false [REDUCE sym_declProp 4 0 24];
   A 8117 2 true [REDUCE sym_declProp 4 0 24; SHIFT 12561];
   A 8120 2 true [REDUCE sym_declProp 4 0 24; SHIFT 4468];
   A 8123 2 true [REDUCE sym_declProp 4 0 24; SHIFT 12824];
   A 8126 2 true [REDUCE sym_declProp 4 0 24; SHIFT 4077];
   A 8129 2 true [REDUCE sym_declProp 4 0 24; SHIFT 3867];
   A 8132 2 true [REDUCE sym_declProp 4 0 24; SHIFT 4478];
   A 8135 2 true [REDUCE sym_declProp 4 0 24; SHIFT 14986];
   A 8138 1 true [REDUCE sym_declProcFwd 2 0 1];
   A 8140 2 true [REDUCE sym_declProcFwd 2 0 1; SHIFT 3501];
   A 8143 1 false [REDUCE sym_declProcFwd 2 0 1];
   A 8145 2 true [REDUCE sym_declProcFwd 2 0 1; SHIFT 12561];
   A 8148 2 true [REDUCE sym_declProcFwd 2 0 1; SHIFT 4468];
   A 8151 2 true [REDUCE sym_declProcFwd 2 0 1; SHIFT 12824];
   A 8154 2 true [REDUCE sym_declProcFwd 2 0 1; SHIFT 4077];
   A 8157 2 true [REDUCE sym_declProcFwd 2 0 1; SHIFT 3867];
   A 8160 2 true [REDUCE sym_declProcFwd 2 0 1; SHIFT 4478];
   A 8163 2 true [REDUCE sym_declProcFwd 2 0 1; SHIFT 14986];
   A 8166 1 true [REDUCE sym_declProp 4 0 27];
   A 8168 2 true [REDUCE sym_declProp 4 0 27; SHIFT 3501];
   A 8171 1 false [REDUCE sym_declProp 4 0 27];
   A 8173 2 true [REDUCE sym_declProp 4 0 27; SHIFT 12561];
   A 8176 2 true [REDUCE sym_declProp 4 0 27; SHIFT 4468];
   A 8179 2 true [REDUCE sym_declProp 4 0 27; SHIFT 12824];
   A 8182 2 true [REDUCE sym_declProp 4 0 27; SHIFT 4077];
   A 8185 2 true [REDUCE sym_declProp 4 0 27; SHIFT 3867];
   A 8188 2 true [REDUCE sym_declProp 4 0 27; SHIFT 4478];
   A 8191 2 true [REDUCE sym_declProp 4 0 27; SHIFT 14986];
   A 8194 1 true [REDUCE sym_declProp 4 0 32];
   A 8196 2 true [REDUCE sym_declProp 4 0 32; SHIFT 3501];
   A 8199 1 false [REDUCE sym_declProp 4 0 32];
   A 8201 2 true [REDUCE sym_declProp 4 0 32; SHIFT 12561];
   A 8204 2 true [REDUCE sym_declProp 4 0 32; SHIFT 4468];
   A 8207 2 true [REDUCE sym_declProp 4 0 32; SHIFT 12824];
   A 8210 2 true [REDUCE sym_declProp 4 0 32; SHIFT 4077];
   A 8213 2 true [REDUCE sym_declProp 4 0 32; SHIFT 3867];
   A 8216 2 true [REDUCE sym_declProp 4 0 32; SHIFT 4478];
   A 8219 2 true [REDUCE sym_declProp 4 0 32; SHIFT 14986];
   A 8222 1 true [REDUCE sym_declProp 4 0 105];
   A 8224 2 true [REDUCE sym_declProp 4 0 105; SHIFT 3501];
   A 8227 1 false [REDUCE sym_declProp 4 0 105];
   A 8229 2 true [REDUCE sym_declProp 4 0 105; SHIFT 12561];
   A 8232 2 true [REDUCE sym_declProp 4 0 105; SHIFT 4468];
   A 8235 2 true [REDUCE sym_declProp 4 0 105; SHIFT 12824];
   A 8238 2 true [REDUCE sym_declProp 4 0 105; SHIFT 4077];
   A 8241 2 true [REDUCE sym_declProp 4 0 105; SHIFT 3867];
   A 8244 2 true [REDUCE sym_declProp 4 0 105; SHIFT 4478];
   A 8247 2 true [REDUCE sym_declProp 4 0 105; SHIFT 14986]
  ].

Definition ts_parse_actions_8250 : list (Z * list TSParseActionEntry) :=
  [
   A 8250 1 true [REDUCE sym_declType 6 0 207];
   A 8252 2 true [REDUCE sym_declType 6 0 207; SHIFT 3501];
   A 8255 1 false [REDUCE sym_declType 6 0 207];
   A 8257 2 true [REDUCE sym_declType 6 0 207; SHIFT 12561];
   A 8260 2 true [REDUCE sym_declType 6 0 207; SHIFT 4468];
   A 8263 2 true [REDUCE sym_declType 6 0 207; SHIFT 12824];
   A 8266 2 true [REDUCE sym_declType 6 0 207; SHIFT 4077];
   A 8269 2 true [REDUCE sym_declType 6 0 207; SHIFT 3867];
   A 8272 2 true [REDUCE sym_declType 6 0 207; SHIFT 4478];
   A 8275 2 true [REDUCE sym_declType 6 0 207; SHIFT 14986];
   A 8278 1 true [REDUCE sym_declType 6 0 124];
   A 8280 2 true [REDUCE sym_declType 6 0 124; SHIFT 3501];
   A 8283 1 false [REDUCE sym_declType 6 0 124];
   A 8285 2 true [REDUCE sym_declType 6 0 124; SHIFT 12561];
   A 8288 2 true [REDUCE sym_declType 6 0 124; SHIFT 4468];
   A 8291 2 true [REDUCE sym_declType 6 0 124; SHIFT 12824];
   A 8294 2 true [REDUCE sym_declType 6 0 124; SHIFT 4077];
   A 8297 2 true [REDUCE sym_declType 6 0 124; SHIFT 3867];
   A 8300 2 true [REDUCE sym_declType 6 0 124; SHIFT 4478];
   A 8303 2 true [REDUCE sym_declType 6 0 124; SHIFT 14986]; A 8306 1 true [SHIFT 867];
   A 8308 1 true [REDUCE sym_declType 6 0 211];
   A 8310 2 true [REDUCE sym_declType 6 0 211; SHIFT 3501];
   A 8313 1 false [REDUCE sym_declType 6 0 211];
   A 8315 2 true [REDUCE sym_declType 6 0 211; SHIFT 12561];
   A 8318 2 true [REDUCE sym_declType 6 0 211; SHIFT 4468];
   A 8321 2 true [REDUCE sym_declType 6 0 211; SHIFT 12824];
   A 8324 2 true [REDUCE sym_declType 6 0 211; SHIFT 4077];
   A 8327 2 true [REDUCE sym_declType 6 0 211; SHIFT 3867];
   A 8330 2 true [REDUCE sym_declType 6 0 211; SHIFT 4478];
   A 8333 2 true [REDUCE sym_declType 6 0 211; SHIFT 14986];
   A 8336 1 true [REDUCE sym_declType 6 0 113];
   A 8338 2 true [REDUCE sym_declType 6 0 113; SHIFT 3501];
   A 8341 1 false [REDUCE sym_declType 6 0 113];
   A 8343 2 true [REDUCE sym_declType 6 0 113; SHIFT 12561];
   A 8346 2 true [REDUCE sym_declType 6 0 113; SHIFT 4468];
   A 8349 2 true [REDUCE sym_declType 6 0 113; SHIFT 12824];
   A 8352 2 true [REDUCE sym_declType 6 0 113; SHIFT 4077];
   A 8355 2 true [REDUCE sym_declType 6 0 113; SHIFT 3867];
   A 8358 2 true [REDUCE sym_declType 6 0 113; SHIFT 4478];
   A 8361 2 true [REDUCE sym_declType 6 0 113; SHIFT 14986];
   A 8364 1 true [REDUCE sym_declProcFwd 3 0 1];
   A 8366 2 true [REDUCE sym_declProcFwd 3 0 1; SHIFT 3501];
   A 8369 1 false [REDUCE sym_declProcFwd 3 0 1];
   A 8371 2 true [REDUCE sym_declProcFwd 3 0 1; SHIFT 12561];
   A 8374 2 true [REDUCE sym_declProcFwd 3 0 1; SHIFT 4468];
   A 8377 2 true [REDUCE sym_declProcFwd 3 0 1; SHIFT 12824];
   A 8380 2 true [REDUCE sym_declProcFwd 3 0 1; SHIFT 4077];
   A 8383 2 true [REDUCE sym_declProcFwd 3 0 1; SHIFT 3867];
   A 8386 2 true [REDUCE sym_declProcFwd 3 0 1; SHIFT 4478];
   A 8389 2 true [REDUCE sym_declProcFwd 3 0 1; SHIFT 14986];
   A 8392 1 true [REDUCE sym_declProcFwd 3 0 23];
   A 8394 2 true [REDUCE sym_declProcFwd 3 0 23; SHIFT 3501];
   A 8397 1 false [REDUCE sym_declProcFwd 3 0 23];
   A 8399 2 true [REDUCE sym_declProcFwd 3 0 23; SHIFT 12561];
   A 8402 2 true [REDUCE sym_declProcFwd 3 0 23; SHIFT 4468];
   A 8405 2 true [REDUCE sym_declProcFwd 3 0 23; SHIFT 12824];
   A 8408 2 true [REDUCE sym_declProcFwd 3 0 23; SHIFT 4077];
   A 8411 2 true [REDUCE sym_declProcFwd 3 0 23; SHIFT 3867];
   A 8414 2 true [REDUCE sym_declProcFwd 3 0 23; SHIFT 4478];
   A 8417 2 true [REDUCE sym_declProcFwd 3 0 23; SHIFT 14986];
   A 8420 1 true [REDUCE sym_declConst 7 0 238];
   A 8422 2 true [REDUCE sym_declConst 7 0 238; SHIFT 3501];
   A 8425 1 false [REDUCE sym_declConst 7 0 238];
   A 8427 2 true [REDUCE sym_declConst 7 0 238; SHIFT 12561];
   A 8430 2 true [REDUCE sym_declConst 7 0 238; SHIFT 4468];
   A 8433 2 true [REDUCE sym_declConst 7 0 238; SHIFT 12824];
   A 8436 2 true [REDUCE sym_declConst 7 0 238; SHIFT 4077];
   A 8439 2 true [REDUCE sym_declConst 7 0 238; SHIFT 3867];
   A 8442 2 true [REDUCE sym_declConst 7 0 238; SHIFT 4478];
   A 8445 2 true [REDUCE sym_declConst 7 0 238; SHIFT 14986];
   A 8448 1 true [REDUCE sym_declConst 3 0 46];
   A 8450 2 true [REDUCE sym_declConst 3 0 46; SHIFT 3501];
   A 8453 1 false [REDUCE sym_declConst 3 0 46];
   A 8455 2 true [REDUCE sym_declConst 3 0 46; SHIFT 12561];
   A 8458 2 true [REDUCE sym_declConst 3 0 46; SHIFT 4468];
   A 8461 2 true [REDUCE sym_declConst 3 0 46; SHIFT 12824];
   A 8464 2 true [REDUCE sym_declConst 3 0 46; SHIFT 4077];
   A 8467 2 true [REDUCE sym_declConst 3 0 46; SHIFT 3867];
   A 8470 2 true [REDUCE sym_declConst 3 0 46; SHIFT 4478];
   A 8473 2 true [REDUCE sym_declConst 3 0 46; SHIFT 14986];
   A 8476 1 true [REDUCE sym_declType 7 0 248];
   A 8478 2 true [REDUCE sym_declType 7 0 248; SHIFT 3501];
   A 8481 1 false [REDUCE sym_declType 7 0 248];
   A 8483 2 true [REDUCE sym_declType 7 0 248; SHIFT 12561];
   A 8486 2 true [REDUCE sym_declType 7 0 248; SHIFT 4468];
   A 8489 2 true [REDUCE sym_declType 7 0 248; SHIFT 12824];
   A 8492 2 true [REDUCE sym_declType 7 0 248; SHIFT 4077];
   A 8495 2 true [REDUCE sym_declType 7 0 248; SHIFT 3867];
   A 8498 2 true [REDUCE sym_declType 7 0 248; SHIFT 4478];
   A 8501 2 true [REDUCE sym_declType 7 0 248; SHIFT 14986];
   A 8504 1 true [REDUCE sym_declType 7 0 254];
   A 8506 2 true [REDUCE sym_declType 7 0 254; SHIFT 3501];
   A 8509 1 false [REDUCE sym_declType 7 0 254];
   A 8511 2 true [REDUCE sym_declType 7 0 254; SHIFT 12561];
   A 8514 2 true [REDUCE sym_declType 7 0 254; SHIFT 4468];
   A 8517 2 true [REDUCE sym_declType 7 0 254; SHIFT 12824];
   A 8520 2 true [REDUCE sym_declType 7 0 254; SHIFT 4077];
   A 8523 2 true [REDUCE sym_declType 7 0 254; SHIFT 3867];
   A 8526 2 true [REDUCE sym_declType 7 0 254; SHIFT 4478];
   A 8529 2 true [REDUCE sym_declType 7 0 254; SHIFT 14986];
   A 8532 1 true [REDUCE sym_declType 7 0 169];
   A 8534 2 true [REDUCE sym_declType 7 0 169; SHIFT 3501];
   A 8537 1 false [REDUCE sym_declType 7 0 169];
   A 8539 2 true [REDUCE sym_declType 7 0 169; SHIFT 12561];
   A 8542 2 true [REDUCE sym_declType 7 0 169; SHIFT 4468];
   A 8545 2 true [REDUCE sym_declType 7 0 169; SHIFT 12824];
   A 8548 2 true [REDUCE sym_declType 7 0 169; SHIFT 4077];
   A 8551 2 true [REDUCE sym_declType 7 0 169; SHIFT 3867];
   A 8554 2 true [REDUCE sym_declType 7 0 169; SHIFT 4478];
   A 8557 2 true [REDUCE sym_declType 7 0 169; SHIFT 14986];
   A 8560 1 true [REDUCE sym_declProcFwd 4 0 52];
   A 8562 2 true [REDUCE sym_declProcFwd 4 0 52; SHIFT 3501];
   A 8565 1 false [REDUCE sym_declProcFwd 4 0 52];
   A 8567 2 true [REDUCE sym_declProcFwd 4 0 52; SHIFT 12561];
   A 8570 2 true [REDUCE sym_declProcFwd 4 0 52; SHIFT 4468];
   A 8573 2 true [REDUCE sym_declProcFwd 4 0 52; SHIFT 12824];
   A 8576 2 true [REDUCE sym_declProcFwd 4 0 52; SHIFT 4077];
   A 8579 2 true [REDUCE sym_declProcFwd 4 0 52; SHIFT 3867];
   A 8582 2 true [REDUCE sym_declProcFwd 4 0 52; SHIFT 4478];
   A 8585 2 true [REDUCE sym_declProcFwd 4 0 52; SHIFT 14986];
   A 8588 1 true [REDUCE aux_sym_declProcFwd_repeat1 2 0 55];
   A 8590 2 true [REDUCE aux_sym_declProcFwd_repeat1 2 0 55; SHIFT_REPEAT 3501];
   A 8593 1 false [REDUCE aux_sym_declProcFwd_repeat1 2 0 55];
   A 8595 2 true [REDUCE aux_sym_declProcFwd_repeat1 2 0 55; SHIFT_REPEAT 12561];
   A 8598 2 true [REDUCE aux_sym_declProcFwd_repeat1 2 0 55; SHIFT_REPEAT 4468];
   A 8601 2 true [REDUCE aux_sym_declProcFwd_repeat1 2 0 55; SHIFT_REPEAT 12824];
   A 8604 2 true [REDUCE aux_sym_declProcFwd_repeat1 2 0 55; SHIFT_REPEAT 4077];
   A 8607 2 true [REDUCE aux_sym_declProcFwd_repeat1 2 0 55; SHIFT_REPEAT 3867];
   A 8610 2 true [REDUCE aux_sym_declProcFwd_repeat1 2 0 55; SHIFT_REPEAT 4478];
   A 8613 2 true [REDUCE aux_sym_declProcFwd_repeat1 2 0 55; SHIFT_REPEAT 14986];
   A 8616 1 true [REDUCE sym_declProp 5 0 57];
   A 8618 2 true [REDUCE sym_declProp 5 0 57; SHIFT 3501];
   A 8621 1 false [REDUCE sym_declProp 5 0 57];
   A 8623 2 true [REDUCE sym_declProp 5 0 57; SHIFT 12561];
   A 8626 2 true [REDUCE sym_declProp 5 0 57; SHIFT 4468];
   A 8629 2 true [REDUCE sym_declProp 5 0 57; SHIFT 12824];
   A 8632 2 true [REDUCE sym_declProp 5 0 57; SHIFT 4077];
   A 8635 2 true [REDUCE sym_declProp 5 0 57; SHIFT 3867];
   A 8638 2 true [REDUCE sym_declProp 5 0 57; SHIFT 4478];
   A 8641 2 true [REDUCE sym_declProp 5 0 57; SHIFT 14986];
   A 8644 1 true [REDUCE sym_declProp 5 0 59];
   A 8646 2 true [REDUCE sym_declProp 5 0 59; SHIFT 3501];
   A 8649 1 false [REDUCE sym_declProp 5 0 59];
   A 8651 2 true [REDUCE sym_declProp 5 0 59; SHIFT 12561];
   A 8654 2 true [REDUCE sym_declProp 5 0 59; SHIFT 4468];
   A 8657 2 true [REDUCE sym_declProp 5 0 59; SHIFT 12824];
   A 8660 2 true [REDUCE sym_declProp 5 0 59; SHIFT 4077];
   A 8663 2 true [REDUCE sym_declProp 5 0 59; SHIFT 3867];
   A 8666 2 true [REDUCE sym_declProp 5 0 59; SHIFT 4478];
   A 8669 2 true [REDUCE sym_declProp 5 0 59; SHIFT 14986];
   A 8672 1 true [REDUCE sym_declProp 5 0 160];
   A 8674 2 true [REDUCE sym_declProp 5 0 160; SHIFT 3501];
   A 8677 1 false [REDUCE sym_declProp 5 0 160];
   A 8679 2 true [REDUCE sym_declProp 5 0 160; SHIFT 12561];
   A 8682 2 true [REDUCE sym_declProp 5 0 160; SHIFT 4468];
   A 8685 2 true [REDUCE sym_declProp 5 0 160; SHIFT 12824];
   A 8688 2 true [REDUCE sym_declProp 5 0 160; SHIFT 4077];
   A 8691 2 true [REDUCE sym_declProp 5 0 160; SHIFT 3867];
   A 8694 2 true [REDUCE sym_declProp 5 0 160; SHIFT 4478];
   A 8697 2 true [REDUCE sym_declProp 5 0 160; SHIFT 14986];
   A 8700 1 true [REDUCE sym_declProp 7 0 258];
   A 8702 2 true [REDUCE sym_declProp 7 0 258; SHIFT 3501];
   A 8705 1 false [REDUCE sym_declProp 7 0 258];
   A 8707 2 true [REDUCE sym_declProp 7 0 258; SHIFT 12561];
   A 8710 2 true [REDUCE sym_declProp 7 0 258; SHIFT 4468];
   A 8713 2 true [REDUCE sym_declProp 7 0 258; SHIFT 12824];
   A 8716 2 true [REDUCE sym_declProp 7 0 258; SHIFT 4077];
   A 8719 2 true [REDUCE sym_declProp 7 0 258; SHIFT 3867];
   A 8722 2 true [REDUCE sym_declProp 7 0 258; SHIFT 4478];
   A 8725 2 true [REDUCE sym_declProp 7 0 258; SHIFT 14986];
   A 8728 1 true [REDUCE sym_declProp 5 0 70];
   A 8730 2 true [REDUCE sym_declProp 5 0 70; SHIFT 3501];
   A 8733 1 false [REDUCE sym_declProp 5 0 70];
   A 8735 2 true [REDUCE sym_declProp 5 0 70; SHIFT 12561];
   A 8738 2 true [REDUCE sym_declProp 5 0 70; SHIFT 4468];
   A 8741 2 true [REDUCE sym_declProp 5 0 70; SHIFT 12824];
   A 8744 2 true [REDUCE sym_declProp 5 0 70; SHIFT 4077];
   A 8747 2 true [REDUCE sym_declProp 5 0 70; SHIFT 3867];
   A 8750 2 true [REDUCE sym_declProp 5 0 70; SHIFT 4478];
   A 8753 2 true [REDUCE sym_declProp 5 0 70; SHIFT 14986];
   A 8756 1 true [REDUCE sym_declType 8 0 284];
   A 8758 2 true [REDUCE sym_declType 8 0 284; SHIFT 3501];
   A 8761 1 false [REDUCE sym_declType 8 0 284];
   A 8763 2 true [REDUCE sym_declType 8 0 284; SHIFT 12561];
   A 8766 2 true [REDUCE sym_declType 8 0 284; SHIFT 4468];
   A 8769 2 true [REDUCE sym_declType 8 0 284; SHIFT 12824];
   A 8772 2 true [REDUCE sym_declType 8 0 284; SHIFT 4077];
   A 8775 2 true [REDUCE sym_declType 8 0 284; SHIFT 3867];
   A 8778 2 true [REDUCE sym_declType 8 0 284; SHIFT 4478];
   A 8781 2 true [REDUCE sym_declType 8 0 284; SHIFT 14986]; A 8784 1 true [SHIFT 990];
   A 8786 1 true [REDUCE sym_declProp 5 0 162];
   A 8788 2 true [REDUCE sym_declProp 5 0 162; SHIFT 3501];
   A 8791 1 false [REDUCE sym_declProp 5 0 162];
   A 8793 2 true [REDUCE sym_declProp 5 0 162; SHIFT 12561];
   A 8796 2 true [REDUCE sym_declProp 5 0 162; SHIFT 4468];
   A 8799 2 true [REDUCE sym_declProp 5 0 162; SHIFT 12824];
   A 8802 2 true [REDUCE sym_declProp 5 0 162; SHIFT 4077];
   A 8805 2 true [REDUCE sym_declProp 5 0 162; SHIFT 3867];
   A 8808 2 true [REDUCE sym_declProp 5 0 162; SHIFT 4478];
   A 8811 2 true [REDUCE sym_declProp 5 0 162; SHIFT 14986];
   A 8814 1 true [REDUCE sym_declProp 5 0 163];
   A 8816 2 true [REDUCE sym_declProp 5 0 163; SHIFT 3501];
   A 8819 1 false [REDUCE sym_declProp 5 0 163];
   A 8821 2 true [REDUCE sym_declProp 5 0 163; SHIFT 12561];
   A 8824 2 true [REDUCE sym_declProp 5 0 163; SHIFT 4468];
   A 8827 2 true [REDUCE sym_declProp 5 0 163; SHIFT 12824];
   A 8830 2 true [REDUCE sym_declProp 5 0 163; SHIFT 4077];
   A 8833 2 true [REDUCE sym_declProp 5 0 163; SHIFT 3867];
   A 8836 2 true [REDUCE sym_declProp 5 0 163; SHIFT 4478];
   A 8839 2 true [REDUCE sym_declProp 5 0 163; SHIFT 14986];
   A 8842 1 true [REDUCE sym_declConst 4 0 92];
   A 8844 2 true [REDUCE sym_declConst 4 0 92; SHIFT 3501];
   A 8847 1 false [REDUCE sym_declConst 4 0 92];
   A 8849 2 true [REDUCE sym_declConst 4 0 92; SHIFT 12561];
   A 8852 2 true [REDUCE sym_declConst 4 0 92; SHIFT 4468];
   A 8855 2 true [REDUCE sym_declConst 4 0 92; SHIFT 12824];
   A 8858 2 true [REDUCE sym_declConst 4 0 92; SHIFT 4077];
   A 8861 2 true [REDUCE sym_declConst 4 0 92; SHIFT 3867];
   A 8864 2 true [REDUCE sym_declConst 4 0 92; SHIFT 4478];
   A 8867 2 true [REDUCE sym_declConst 4 0 92; SHIFT 14986];
   A 8870 1 true [REDUCE sym_declConst 4 0 33];
   A 8872 2 true [REDUCE sym_declConst 4 0 33; SHIFT 3501];
   A 8875 1 false [REDUCE sym_declConst 4 0 33];
   A 8877 2 true [REDUCE sym_declConst 4 0 33; SHIFT 12561];
   A 8880 2 true [REDUCE sym_declConst 4 0 33; SHIFT 4468];
   A 8883 2 true [REDUCE sym_declConst 4 0 33; SHIFT 12824];
   A 8886 2 true [REDUCE sym_declConst 4 0 33; SHIFT 4077];
   A 8889 2 true [REDUCE sym_declConst 4 0 33; SHIFT 3867];
   A 8892 2 true [REDUCE sym_declConst 4 0 33; SHIFT 4478];
   A 8895 2 true [REDUCE sym_declConst 4 0 33; SHIFT 14986];
   A 8898 1 true [REDUCE sym_declProp 5 0 56];
   A 8900 2 true [REDUCE sym_declProp 5 0 56; SHIFT 3501];
   A 8903 1 false [REDUCE sym_declProp 5 0 56];
   A 8905 2 true [REDUCE sym_declProp 5 0 56; SHIFT 12561];
   A 8908 2 true [REDUCE sym_declProp 5 0 56; SHIFT 4468];
   A 8911 2 true [REDUCE sym_declProp 5 0 56; SHIFT 12824];
   A 8914 2 true [REDUCE sym_declProp 5 0 56; SHIFT 4077];
   A 8917 2 true [REDUCE sym_declProp 5 0 56; SHIFT 3867];
   A 8920 2 true [REDUCE sym_declProp 5 0 56; SHIFT 4478];
   A 8923 2 true [REDUCE sym_declProp 5 0 56; SHIFT 14986];
   A 8926 1 true [REDUCE sym_declType 4 0 94];
   A 8928 2 true [REDUCE sym_declType 4 0 94; SHIFT 3501];
   A 8931 1 false [REDUCE sym_declType 4 0 94];
   A 8933 2 true [REDUCE sym_declType 4 0 94; SHIFT 12561];
   A 8936 2 true [REDUCE sym_declType 4 0 94; SHIFT 4468];
   A 8939 2 true [REDUCE sym_declType 4 0 94; SHIFT 12824];
   A 8942 2 true [REDUCE sym_declType 4 0 94; SHIFT 4077];
   A 8945 2 true [REDUCE sym_declType 4 0 94; SHIFT 3867];
   A 8948 2 true [REDUCE sym_declType 4 0 94; SHIFT 4478];
   A 8951 2 true [REDUCE sym_declType 4 0 94; SHIFT 14986];
   A 8954 1 true [REDUCE sym_declProp 3 0 11];
   A 8956 2 true [REDUCE sym_declProp 3 0 11; SHIFT 3501];
   A 8959 1 false [REDUCE sym_declProp 3 0 11];
   A 8961 2 true [REDUCE sym_declProp 3 0 11; SHIFT 12561];
   A 8964 2 true [REDUCE sym_declProp 3 0 11; SHIFT 4468];
   A 8967 2 true [REDUCE sym_declProp 3 0 11; SHIFT 12824];
   A 8970 2 true [REDUCE sym_declProp 3 0 11; SHIFT 4077];
   A 8973 2 true [REDUCE sym_declProp 3 0 11; SHIFT 3867];
   A 8976 2 true [REDUCE sym_declProp 3 0 11; SHIFT 4478];
   A 8979 2 true [REDUCE sym_declProp 3 0 11; SHIFT 14986];
   A 8982 1 true [REDUCE sym_declProp 6 0 113];
   A 8984 2 true [REDUCE sym_declProp 6 0 113; SHIFT 3501];
   A 8987 1 false [REDUCE sym_declProp 6 0 113];
   A 8989 2 true [REDUCE sym_declProp 6 0 113; SHIFT 12561];
   A 8992 2 true [REDUCE sym_declProp 6 0 113; SHIFT 4468];
   A 8995 2 true [REDUCE sym_declProp 6 0 113; SHIFT 12824];
   A 8998 2 true [REDUCE sym_declProp 6 0 113; SHIFT 4077];
   A 9001 2 true [REDUCE sym_declProp 6 0 113; SHIFT 3867];
   A 9004 2 true [REDUCE sym_declProp 6 0 113; SHIFT 4478];
   A 9007 2 true [REDUCE sym_declProp 6 0 113; SHIFT 14986];
   A 9010 1 true [REDUCE sym_declProp 6 0 115];
   A 9012 2 true [REDUCE sym_declProp 6 0 115; SHIFT 3501];
   A 9015 1 false [REDUCE sym_declProp 6 0 115];
   A 9017 2 true [REDUCE sym_declProp 6 0 115; SHIFT 12561];
   A 9020 2 true [REDUCE sym_declProp 6 0 115; SHIFT 4468];
   A 9023 2 true [REDUCE sym_declProp 6 0 115; SHIFT 12824];
   A 9026 2 true [REDUCE sym_declProp 6 0 115; SHIFT 4077];
   A 9029 2 true [REDUCE sym_declProp 6 0 115; SHIFT 3867];
   A 9032 2 true [REDUCE sym_declProp 6 0 115; SHIFT 4478];
   A 9035 2 true [REDUCE sym_declProp 6 0 115; SHIFT 14986];
   A 9038 1 true [REDUCE sym_declProp 6 0 212];
   A 9040 2 true [REDUCE sym_declProp 6 0 212; SHIFT 3501];
   A 9043 1 false [REDUCE sym_declProp 6 0 212];
   A 9045 2 true [REDUCE sym_declProp 6 0 212; SHIFT 12561];
   A 9048 2 true [REDUCE sym_declProp 6 0 212; SHIFT 4468];
   A 9051 2 true [REDUCE sym_declProp 6 0 212; SHIFT 12824];
   A 9054 2 true [REDUCE sym_declProp 6 0 212; SHIFT 4077];
   A 9057 2 true [REDUCE sym_declProp 6 0 212; SHIFT 3867];
   A 9060 2 true [REDUCE sym_declProp 6 0 212; SHIFT 4478];
   A 9063 2 true [REDUCE sym_declProp 6 0 212; SHIFT 14986];
   A 9066 1 true [REDUCE sym_declProp 6 0 213];
   A 9068 2 true [REDUCE sym_declProp 6 0 213; SHIFT 3501];
   A 9071 1 false [REDUCE sym_declProp 6 0 213];
   A 9073 2 true [REDUCE sym_declProp 6 0 213; SHIFT 12561];
   A 9076 2 true [REDUCE sym_declProp 6 0 213; SHIFT 4468];
   A 9079 2 true [REDUCE sym_declProp 6 0 213; SHIFT 12824];
   A 9082 2 true [REDUCE sym_declProp 6 0 213; SHIFT 4077];
   A 9085 2 true [REDUCE sym_declProp 6 0 213; SHIFT 3867];
   A 9088 2 true [REDUCE sym_declProp 6 0 213; SHIFT 4478];
   A 9091 2 true [REDUCE sym_declProp 6 0 213; SHIFT 14986];
   A 9094 1 true [REDUCE sym_declProp 6 0 124];
   A 9096 2 true [REDUCE sym_declProp 6 0 124; SHIFT 3501];
   A 9099 1 false [REDUCE sym_declProp 6 0 124];
   A 9101 2 true [REDUCE sym_declProp 6 0 124; SHIFT 12561];
   A 9104 2 true [REDUCE sym_declProp 6 0 124; SHIFT 4468];
   A 9107 2 true [REDUCE sym_declProp 6 0 124; SHIFT 12824];
   A 9110 2 true [REDUCE sym_declProp 6 0 124; SHIFT 4077];
   A 9113 2 true [REDUCE sym_declProp 6 0 124; SHIFT 3867];
   A 9116 2 true [REDUCE sym_declProp 6 0 124; SHIFT 4478];
   A 9119 2 true [REDUCE sym_declProp 6 0 124; SHIFT 14986];
   A 9122 1 true [REDUCE sym_declProp 6 0 214];
   A 9124 2 true [REDUCE sym_declProp 6 0 214; SHIFT 3501];
   A 9127 1 false [REDUCE sym_declProp 6 0 214];
   A 9129 2 true [REDUCE sym_declProp 6 0 214; SHIFT 12561];
   A 9132 2 true [REDUCE sym_declProp 6 0 214; SHIFT 4468];
   A 9135 2 true [REDUCE sym_declProp 6 0 214; SHIFT 12824];
   A 9138 2 true [REDUCE sym_declProp 6 0 214; SHIFT 4077];
   A 9141 2 true [REDUCE sym_declProp 6 0 214; SHIFT 3867];
   A 9144 2 true [REDUCE sym_declProp 6 0 214; SHIFT 4478];
   A 9147 2 true [REDUCE sym_declProp 6 0 214; SHIFT 14986];
   A 9150 1 true [REDUCE sym_declProp 6 0 129];
   A 9152 2 true [REDUCE sym_declProp 6 0 129; SHIFT 3501];
   A 9155 1 false [REDUCE sym_declProp 6 0 129];
   A 9157 2 true [REDUCE sym_declProp 6 0 129; SHIFT 12561];
   A 9160 2 true [REDUCE sym_declProp 6 0 129; SHIFT 4468];
   A 9163 2 true [REDUCE sym_declProp 6 0 129; SHIFT 12824];
   A 9166 2 true [REDUCE sym_declProp 6 0 129; SHIFT 4077];
   A 9169 2 true [REDUCE sym_declProp 6 0 129; SHIFT 3867];
   A 9172 2 true [REDUCE sym_declProp 6 0 129; SHIFT 4478];
   A 9175 2 true [REDUCE sym_declProp 6 0 129; SHIFT 14986];
   A 9178 1 true [REDUCE sym_declProp 6 0 215];
   A 9180 2 true [REDUCE sym_declProp 6 0 215; SHIFT 3501];
   A 9183 1 false [REDUCE sym_declProp 6 0 215];
   A 9185 2 true [REDUCE sym_declProp 6 0 215; SHIFT 12561];
   A 9188 2 true [REDUCE sym_declProp 6 0 215; SHIFT 4468];
   A 9191 2 true [REDUCE sym_declProp 6 0 215; SHIFT 12824];
   A 9194 2 true [REDUCE sym_declProp 6 0 215; SHIFT 4077];
   A 9197 2 true [REDUCE sym_declProp 6 0 215; SHIFT 3867];
   A 9200 2 true [REDUCE sym_declProp 6 0 215; SHIFT 4478];
   A 9203 2 true [REDUCE sym_declProp 6 0 215; SHIFT 14986];
   A 9206 1 true [REDUCE sym_declProp 6 0 110];
   A 9208 2 true [REDUCE sym_declProp 6 0 110; SHIFT 3501];
   A 9211 1 false [REDUCE sym_declProp 6 0 110];
   A 9213 2 true [REDUCE sym_declProp 6 0 110; SHIFT 12561];
   A 9216 2 true [REDUCE sym_declProp 6 0 110; SHIFT 4468];
   A 9219 2 true [REDUCE sym_declProp 6 0 110; SHIFT 12824];
   A 9222 2 true [REDUCE sym_declProp 6 0 110; SHIFT 4077];
   A 9225 2 true [REDUCE sym_declProp 6 0 110; SHIFT 3867];
   A 9228 2 true [REDUCE sym_declProp 6 0 110; SHIFT 4478];
   A 9231 2 true [REDUCE sym_declProp 6 0 110; SHIFT 14986];
   A 9234 1 true [REDUCE sym_declProp 6 0 112];
   A 9236 2 true [REDUCE sym_declProp 6 0 112; SHIFT 3501];
   A 9239 1 false [REDUCE sym_declProp 6 0 112];
   A 9241 2 true [REDUCE sym_declProp 6 0 112; SHIFT 12561];
   A 9244 2 true [REDUCE sym_declProp 6 0 112; SHIFT 4468];
   A 9247 2 true [REDUCE sym_declProp 6 0 112; SHIFT 12824];
   A 9250 2 true [REDUCE sym_declProp 6 0 112; SHIFT 4077];
   A 9253 2 true [REDUCE sym_declProp 6 0 112; SHIFT 3867];
   A 9256 2 true [REDUCE sym_declProp 6 0 112; SHIFT 4478];
   A 9259 2 true [REDUCE sym_declProp 6 0 112; SHIFT 14986];
   A 9262 1 true [REDUCE sym_declProp 6 0 216];
   A 9264 2 true [REDUCE sym_declProp 6 0 216; SHIFT 3501];
   A 9267 1 false [REDUCE sym_declProp 6 0 216];
   A 9269 2 true [REDUCE sym_declProp 6 0 216; SHIFT 12561];
   A 9272 2 true [REDUCE sym_declProp 6 0 216; SHIFT 4468];
   A 9275 2 true [REDUCE sym_declProp 6 0 216; SHIFT 12824];
   A 9278 2 true [REDUCE sym_declProp 6 0 216; SHIFT 4077];
   A 9281 2 true [REDUCE sym_declProp 6 0 216; SHIFT 3867];
   A 9284 2 true [REDUCE sym_declProp 6 0 216; SHIFT 4478];
   A 9287 2 true [REDUCE sym_declProp 6 0 216; SHIFT 14986];
   A 9290 1 true [REDUCE sym_declProp 7 0 169];
   A 9292 2 true [REDUCE sym_declProp 7 0 169; SHIFT 3501];
   A 9295 1 false [REDUCE sym_declProp 7 0 169];
   A 9297 2 true [REDUCE sym_declProp 7 0 169; SHIFT 12561];
   A 9300 2 true [REDUCE sym_declProp 7 0 169; SHIFT 4468];
   A 9303 2 true [REDUCE sym_declProp 7 0 169; SHIFT 12824];
   A 9306 2 true [REDUCE sym_declProp 7 0 169; SHIFT 4077];
   A 9309 2 true [REDUCE sym_declProp 7 0 169; SHIFT 3867];
   A 9312 2 true [REDUCE sym_declProp 7 0 169; SHIFT 4478];
   A 9315 2 true [REDUCE sym_declProp 7 0 169; SHIFT 14986]; A 9318 1 true [SHIFT 9358];
   A 9320 1 true [SHIFT 942]; A 9322 1 true [SHIFT 9067]; A 9324 1 true [SHIFT 9068];
   A 9326 1 true [SHIFT 9081]; A 9328 1 true [SHIFT 9099]; A 9330 1 true [SHIFT 9109];
   A 9332 1 true [SHIFT 9117]; A 9334 1 true [SHIFT 9121];
   A 9336 1 true [REDUCE sym_declConst 5 0 147];
   A 9338 2 true [REDUCE sym_declConst 5 0 147; SHIFT 3501];
   A 9341 1 false [REDUCE sym_declConst 5 0 147];
   A 9343 2 true [REDUCE sym_declConst 5 0 147; SHIFT 12561];
   A 9346 2 true [REDUCE sym_declConst 5 0 147; SHIFT 4468];
   A 9349 2 true [REDUCE sym_declConst 5 0 147; SHIFT 12824];
   A 9352 2 true [REDUCE sym_declConst 5 0 147; SHIFT 4077];
   A 9355 2 true [REDUCE sym_declConst 5 0 147; SHIFT 3867];
   A 9358 2 true [REDUCE sym_declConst 5 0 147; SHIFT 4478];
   A 9361 2 true [REDUCE sym_declConst 5 0 147; SHIFT 14986]; A 9364 1 true [SHIFT 6082];
   A 9366 1 true [SHIFT 5066]; A 9368 1 true [SHIFT 6010]; A 9370 1 true [SHIFT 6007];
   A 9372 1 true [SHIFT 6135]; A 9374 1 true [SHIFT 6059]; A 9376 1 true [SHIFT 6062];
   A 9378 1 true [SHIFT 6072]; A 9380 1 true [REDUCE sym_declProp 7 0 259];
   A 9382 2 true [REDUCE sym_declProp 7 0 259; SHIFT 3501];
   A 9385 1 false [REDUCE sym_declProp 7 0 259];
   A 9387 2 true [REDUCE sym_declProp 7 0 259; SHIFT 12561];
   A 9390 2 true [REDUCE sym_declProp 7 0 259; SHIFT 4468];
   A 9393 2 true [REDUCE sym_declProp 7 0 259; SHIFT 12824];
   A 9396 2 true [REDUCE sym_declProp 7 0 259; SHIFT 4077];
   A 9399 2 true [REDUCE sym_declProp 7 0 259; SHIFT 3867];
   A 9402 2 true [REDUCE sym_declProp 7 0 259; SHIFT 4478];
   A 9405 2 true [REDUCE sym_declProp 7 0 259; SHIFT 14986];
   A 9408 1 true [REDUCE sym_declConst 5 0 148];
   A 9410 2 true [REDUCE sym_declConst 5 0 148; SHIFT 3501];
   A 9413 1 false [REDUCE sym_declConst 5 0 148];
   A 9415 2 true [REDUCE sym_declConst 5 0 148; SHIFT 12561];
   A 9418 2 true [REDUCE sym_declConst 5 0 148; SHIFT 4468];
   A 9421 2 true [REDUCE sym_declConst 5 0 148; SHIFT 12824];
   A 9424 2 true [REDUCE sym_declConst 5 0 148; SHIFT 4077];
   A 9427 2 true [REDUCE sym_declConst 5 0 148; SHIFT 3867];
   A 9430 2 true [REDUCE sym_declConst 5 0 148; SHIFT 4478];
   A 9433 2 true [REDUCE sym_declConst 5 0 148; SHIFT 14986];
   A 9436 1 true [REDUCE sym_declProp 7 0 165];
   A 9438 2 true [REDUCE sym_declProp 7 0 165; SHIFT 3501];
   A 9441 1 false [REDUCE sym_declProp 7 0 165];
   A 9443 2 true [REDUCE sym_declProp 7 0 165; SHIFT 12561];
   A 9446 2 true [REDUCE sym_declProp 7 0 165; SHIFT 4468];
   A 9449 2 true [REDUCE sym_declProp 7 0 165; SHIFT 12824];
   A 9452 2 true [REDUCE sym_declProp 7 0 165; SHIFT 4077];
   A 9455 2 true [REDUCE sym_declProp 7 0 165; SHIFT 3867];
   A 9458 2 true [REDUCE sym_declProp 7 0 165; SHIFT 4478];
   A 9461 2 true [REDUCE sym_declProp 7 0 165; SHIFT 14986];
   A 9464 1 true [REDUCE sym_declProp 7 0 255];
   A 9466 2 true [REDUCE sym_declProp 7 0 255; SHIFT 3501];
   A 9469 1 false [REDUCE sym_declProp 7 0 255];
   A 9471 2 true [REDUCE sym_declProp 7 0 255; SHIFT 12561];
   A 9474 2 true [REDUCE sym_declProp 7 0 255; SHIFT 4468];
   A 9477 2 true [REDUCE sym_declProp 7 0 255; SHIFT 12824];
   A 9480 2 true [REDUCE sym_declProp 7 0 255; SHIFT 4077];
   A 9483 2 true [REDUCE sym_declProp 7 0 255; SHIFT 3867];
   A 9486 2 true [REDUCE sym_declProp 7 0 255; SHIFT 4478];
   A 9489 2 true [REDUCE sym_declProp 7 0 255; SHIFT 14986];
   A 9492 1 true [REDUCE sym_declProp 7 0 171];
   A 9494 2 true [REDUCE sym_declProp 7 0 171; SHIFT 3501];
   A 9497 1 false [REDUCE sym_declProp 7 0 171];
   A 9499 2 true [REDUCE sym_declProp 7 0 171; SHIFT 12561];
   A 9502 2 true [REDUCE sym_declProp 7 0 171; SHIFT 4468];
   A 9505 2 true [REDUCE sym_declProp 7 0 171; SHIFT 12824];
   A 9508 2 true [REDUCE sym_declProp 7 0 171; SHIFT 4077];
   A 9511 2 true [REDUCE sym_declProp 7 0 171; SHIFT 3867];
   A 9514 2 true [REDUCE sym_declProp 7 0 171; SHIFT 4478];
   A 9517 2 true [REDUCE sym_declProp 7 0 171; SHIFT 14986];
   A 9520 1 true [REDUCE sym_declProp 7 0 256];
   A 9522 2 true [REDUCE sym_declProp 7 0 256; SHIFT 3501];
   A 9525 1 false [REDUCE sym_declProp 7 0 256];
   A 9527 2 true [REDUCE sym_declProp 7 0 256; SHIFT 12561];
   A 9530 2 true [REDUCE sym_declProp 7 0 256; SHIFT 4468];
   A 9533 2 true [REDUCE sym_declProp 7 0 256; SHIFT 12824];
   A 9536 2 true [REDUCE sym_declProp 7 0 256; SHIFT 4077];
   A 9539 2 true [REDUCE sym_declProp 7 0 256; SHIFT 3867];
   A 9542 2 true [REDUCE sym_declProp 7 0 256; SHIFT 4478];
   A 9545 2 true [REDUCE sym_declProp 7 0 256; SHIFT 14986];
   A 9548 1 true [REDUCE sym_declProp 7 0 257];
   A 9550 2 true [REDUCE sym_declProp 7 0 257; SHIFT 3501];
   A 9553 1 false [REDUCE sym_declProp 7 0 257];
   A 9555 2 true [REDUCE sym_declProp 7 0 257; SHIFT 12561];
   A 9558 2 true [REDUCE sym_declProp 7 0 257; SHIFT 4468];
   A 9561 2 true [REDUCE sym_declProp 7 0 257; SHIFT 12824];
   A 9564 2 true [REDUCE sym_declProp 7 0 257; SHIFT 4077];
   A 9567 2 true [REDUCE sym_declProp 7 0 257; SHIFT 3867];
   A 9570 2 true [REDUCE sym_declProp 7 0 257; SHIFT 4478];
   A 9573 2 true [REDUCE sym_declProp 7 0 257; SHIFT 14986];
   A 9576 1 true [REDUCE sym_declProp 7 0 185];
   A 9578 2 true [REDUCE sym_declProp 7 0 185; SHIFT 3501];
   A 9581 1 false [REDUCE sym_declProp 7 0 185];
   A 9583 2 true [REDUCE sym_declProp 7 0 185; SHIFT 12561];
   A 9586 2 true [REDUCE sym_declProp 7 0 185; SHIFT 4468];
   A 9589 2 true [REDUCE sym_declProp 7 0 185; SHIFT 12824];
   A 9592 2 true [REDUCE sym_declProp 7 0 185; SHIFT 4077];
   A 9595 2 true [REDUCE sym_declProp 7 0 185; SHIFT 3867];
   A 9598 2 true [REDUCE sym_declProp 7 0 185; SHIFT 4478];
   A 9601 2 true [REDUCE sym_declProp 7 0 185; SHIFT 14986];
   A 9604 1 true [REDUCE sym_declProp 5 0 66];
   A 9606 2 true [REDUCE sym_declProp 5 0 66; SHIFT 3501];
   A 9609 1 false [REDUCE sym_declProp 5 0 66];
   A 9611 2 true [REDUCE sym_declProp 5 0 66; SHIFT 12561];
   A 9614 2 true [REDUCE sym_declProp 5 0 66; SHIFT 4468];
   A 9617 2 true [REDUCE sym_declProp 5 0 66; SHIFT 12824];
   A 9620 2 true [REDUCE sym_declProp 5 0 66; SHIFT 4077];
   A 9623 2 true [REDUCE sym_declProp 5 0 66; SHIFT 3867];
   A 9626 2 true [REDUCE sym_declProp 5 0 66; SHIFT 4478];
   A 9629 2 true [REDUCE sym_declProp 5 0 66; SHIFT 14986]; A 9632 1 true [SHIFT 6101];
   A 9634 1 true [SHIFT 3502]; A 9636 1 false [SHIFT 5141]; A 9638 1 true [SHIFT 6534];
   A 9640 1 true [SHIFT 12079]; A 9642 1 false [SHIFT 7552]; A 9644 1 true [SHIFT 7552];
   A 9646 1 false [SHIFT 4705]; A 9648 1 true [SHIFT 4705]; A 9650 1 true [SHIFT 7341];
   A 9652 1 true [SHIFT 15868]; A 9654 1 true [SHIFT 7338]; A 9656 1 true [SHIFT 7339];
   A 9658 1 true [SHIFT 11379]; A 9660 1 true [SHIFT 462]; A 9662 1 true [SHIFT 5407];
   A 9664 1 true [SHIFT 14245]; A 9666 1 true [SHIFT 3781]; A 9668 1 true [SHIFT 6325];
   A 9670 1 true [SHIFT 13308]; A 9672 1 true [SHIFT 5106]; A 9674 1 true [SHIFT 7340];
   A 9676 1 true [SHIFT 3548]; A 9678 1 true [SHIFT 415]; A 9680 1 true [SHIFT 15007];
   A 9682 1 true [SHIFT 151]; A 9684 1 true [SHIFT 15570]; A 9686 1 true [SHIFT 5055];
   A 9688 1 true [SHIFT 4149]; A 9690 1 true [SHIFT 6280]; A 9692 1 true [SHIFT 11498];
   A 9694 1 true [SHIFT 583]; A 9696 1 true [SHIFT 5340]; A 9698 1 true [SHIFT 3772];
   A 9700 1 true [SHIFT 13025]; A 9702 1 true [SHIFT 5304]; A 9704 1 true [SHIFT 3650];
   A 9706 1 true [SHIFT 375]; A 9708 1 true [SHIFT 145]; A 9710 1 true [SHIFT 4837];
   A 9712 1 true [SHIFT 4111]; A 9714 1 true [SHIFT 9348]; A 9716 1 true [SHIFT 12958];
   A 9718 1 true [SHIFT 11373]; A 9720 1 true [SHIFT 452]; A 9722 1 true [SHIFT 5403];
   A 9724 1 true [REDUCE sym_exceptionHandlerTr 3 0 15]; A 9726 1 true [SHIFT 3779];
   A 9728 1 true [SHIFT 13687]; A 9730 1 true [SHIFT 5053]; A 9732 1 true [SHIFT 3705];
   A 9734 1 true [SHIFT 412]; A 9736 1 true [SHIFT 149]; A 9738 1 true [SHIFT 5029];
   A 9740 1 true [SHIFT 4145]; A 9742 1 true [SHIFT 6155]; A 9744 1 true [SHIFT 1025];
   A 9746 1 true [SHIFT 4836]; A 9748 1 true [SHIFT 6124]; A 9750 1 true [SHIFT 1023];
   A 9752 1 true [SHIFT 6042]; A 9754 1 true [SHIFT 3677]; A 9756 1 false [SHIFT 5241];
   A 9758 1 true [SHIFT 6591]; A 9760 1 true [SHIFT 12229]; A 9762 1 false [SHIFT 7474];
   A 9764 1 true [SHIFT 7474]; A 9766 1 false [SHIFT 5385]; A 9768 1 true [SHIFT 5385];
   A 9770 1 true [SHIFT 7326]; A 9772 1 true [SHIFT 14784]; A 9774 1 true [SHIFT 7319];
   A 9776 1 true [SHIFT 7324]; A 9778 1 true [SHIFT 11386]; A 9780 1 true [SHIFT 479];
   A 9782 1 true [SHIFT 5412]; A 9784 1 true [SHIFT 14697]; A 9786 1 true [SHIFT 3784];
   A 9788 1 true [SHIFT 6251]; A 9790 1 true [SHIFT 13388]; A 9792 1 true [SHIFT 5148];
   A 9794 1 true [SHIFT 7325]; A 9796 1 true [SHIFT 3529]; A 9798 1 true [SHIFT 420];
   A 9800 1 true [SHIFT 15230]; A 9802 1 true [SHIFT 154]; A 9804 1 true [SHIFT 15696];
   A 9806 1 true [SHIFT 5097]; A 9808 1 true [SHIFT 4158];
   A 9810 1 true [REDUCE sym__ppEndIf 1 0 0]; A 9812 1 false [REDUCE sym__ppEndIf 1 0 0];
   A 9814 1 true [SHIFT 6043]; A 9816 1 true [SHIFT 6024]; A 9818 1 true [SHIFT 5933];
   A 9820 1 true [SHIFT 6027]; A 9822 1 true [REDUCE sym__procAttributeNoExt 4 0 164];
   A 9824 1 false [REDUCE sym__procAttributeNoExt 4 0 164]; A 9826 1 true [SHIFT 6055];
   A 9828 1 true [SHIFT 1035]; A 9830 1 true [SHIFT 975]; A 9832 1 true [SHIFT 6036];
   A 9834 1 true [REDUCE sym__procAttributeNoExt 5 0 217];
   A 9836 1 false [REDUCE sym__procAttributeNoExt 5 0 217];
   A 9838 1 true [REDUCE sym__procAttributeNoExt 5 0 227];
   A 9840 1 false [REDUCE sym__procAttributeNoExt 5 0 227];
   A 9842 1 true [REDUCE sym__procAttributesPp 2 2 0];
   A 9844 1 false [REDUCE sym__procAttributesPp 2 2 0]; A 9846 1 true [SHIFT 12591];
   A 9848 1 true [REDUCE sym_exceptionHandlerTr 5 0 233];
   A 9850 1 true [REDUCE sym__procAttributesPp 3 2 121];
   A 9852 1 false [REDUCE sym__procAttributesPp 3 2 121]; A 9854 1 true [SHIFT 12545];
   A 9856 1 true [SHIFT 1015]; A 9858 1 true [REDUCE sym__procAttributesPp 4 2 177];
   A 9860 1 false [REDUCE sym__procAttributesPp 4 2 177]; A 9862 1 true [SHIFT 15781];
   A 9864 1 true [SHIFT 7310]; A 9866 1 true [SHIFT 6119];
   A 9868 1 true [REDUCE aux_sym__declProc_repeat1 1 0 22];
   A 9870 1 false [REDUCE aux_sym__declProc_repeat1 1 0 22]; A 9872 1 true [SHIFT 6133];
   A 9874 1 true [SHIFT 6141]; A 9876 1 true [SHIFT 11538]; A 9878 1 true [SHIFT 665];
   A 9880 1 true [SHIFT 5391]; A 9882 1 true [SHIFT 3776]; A 9884 1 true [SHIFT 13720];
   A 9886 1 true [SHIFT 5039]; A 9888 1 true [SHIFT 3704]; A 9890 1 true [SHIFT 404];
   A 9892 1 true [SHIFT 144]; A 9894 1 true [SHIFT 4976]; A 9896 1 true [SHIFT 4137];
   A 9898 1 true [SHIFT 6237]; A 9900 1 true [SHIFT 6023]; A 9902 1 true [SHIFT 6324];
   A 9904 1 true [SHIFT 6289]; A 9906 1 true [SHIFT 6291]; A 9908 1 true [SHIFT 6300];
   A 9910 1 true [REDUCE sym__procAttributeNoExt 1 0 22];
   A 9912 1 false [REDUCE sym__procAttributeNoExt 1 0 22]; A 9914 1 true [SHIFT 6217];
   A 9916 1 true [SHIFT 6218]; A 9918 1 true [REDUCE sym_declProc 1 0 1];
   A 9920 1 false [REDUCE sym_declProc 1 0 1]; A 9922 1 true [SHIFT 14802];
   A 9924 1 true [SHIFT 3435]; A 9926 1 true [SHIFT 5902]; A 9928 1 true [SHIFT 6041];
   A 9930 1 true [SHIFT 1131]; A 9932 1 true [SHIFT 12494]; A 9934 1 true [SHIFT 12500];
   A 9936 1 true [SHIFT 12565]; A 9938 1 true [SHIFT 12653]; A 9940 1 true [SHIFT 12688];
   A 9942 1 true [SHIFT 12696]; A 9944 1 true [SHIFT 12715];
   A 9946 1 true [REDUCE sym__procAttributeNoExt 2 0 54];
   A 9948 1 false [REDUCE sym__procAttributeNoExt 2 0 54]; A 9950 1 true [SHIFT 6089];
   A 9952 1 true [SHIFT 6090]; A 9954 1 true [SHIFT 6093]; A 9956 1 true [SHIFT 6340];
   A 9958 1 true [SHIFT 1050]; A 9960 1 true [SHIFT 4975]; A 9962 1 true [SHIFT 6179];
   A 9964 1 true [SHIFT 6104]; A 9966 1 true [SHIFT 6105]; A 9968 1 true [SHIFT 6106];
   A 9970 1 true [SHIFT 9195]; A 9972 1 true [SHIFT 6199];
   A 9974 1 true [REDUCE sym__procAttributeNoExt 3 0 0];
   A 9976 1 false [REDUCE sym__procAttributeNoExt 3 0 0]; A 9978 1 true [SHIFT 6186];
   A 9980 1 true [SHIFT 6203]; A 9982 1 true [SHIFT 6151]; A 9984 1 true [SHIFT 6356];
   A 9986 1 true [SHIFT 3583]; A 9988 1 false [SHIFT 5193]; A 9990 1 true [SHIFT 6967];
   A 9992 1 true [SHIFT 12444]; A 9994 1 false [SHIFT 7660]; A 9996 1 true [SHIFT 7660];
   A 9998 1 false [SHIFT 4950]; A 10000 1 true [SHIFT 4950]; A 10002 1 true [SHIFT 7363];
   A 10004 1 true [SHIFT 14212]; A 10006 1 true [SHIFT 7414]; A 10008 1 true [SHIFT 7430];
   A 10010 1 true [SHIFT 11377]; A 10012 1 true [SHIFT 457]; A 10014 1 true [SHIFT 5405];
   A 10016 1 true [SHIFT 14497]; A 10018 1 true [SHIFT 3780]; A 10020 1 true [SHIFT 6192];
   A 10022 1 true [SHIFT 13466]; A 10024 1 true [SHIFT 5116]; A 10026 1 true [SHIFT 7473];
   A 10028 1 true [SHIFT 3975]; A 10030 1 true [SHIFT 176]; A 10032 1 true [SHIFT 15116];
   A 10034 1 true [SHIFT 150]; A 10036 1 true [SHIFT 15641]; A 10038 1 true [SHIFT 5041];
   A 10040 1 true [SHIFT 4147]; A 10042 1 true [SHIFT 6799]; A 10044 1 true [SHIFT 11411];
   A 10046 1 true [SHIFT 537]; A 10048 1 true [SHIFT 5420]; A 10050 1 true [SHIFT 3791];
   A 10052 1 true [SHIFT 13035]; A 10054 1 true [SHIFT 5254]; A 10056 1 true [SHIFT 3884];
   A 10058 1 true [SHIFT 427]; A 10060 1 true [SHIFT 161]; A 10062 1 true [SHIFT 5171];
   A 10064 1 true [SHIFT 4172]; A 10066 1 true [SHIFT 6517]; A 10068 1 true [SHIFT 11390];
   A 10070 1 true [SHIFT 490]; A 10072 1 true [SHIFT 5413]; A 10074 1 true [SHIFT 3785];
   A 10076 1 true [SHIFT 13662]; A 10078 1 true [SHIFT 5199]; A 10080 1 true [SHIFT 4023];
   A 10082 1 true [SHIFT 421]; A 10084 1 true [SHIFT 155]; A 10086 1 true [SHIFT 5107];
   A 10088 1 true [SHIFT 4160]; A 10090 1 true [SHIFT 6604]; A 10092 1 true [SHIFT 1040];
   A 10094 1 true [SHIFT 5160]; A 10096 1 true [SHIFT 6553]; A 10098 1 true [SHIFT 14128];
   A 10100 1 true [SHIFT 7422]; A 10102 1 true [SHIFT 6461]; A 10104 1 true [SHIFT 6470];
   A 10106 1 true [SHIFT 15564]; A 10108 1 true [SHIFT 11423]; A 10110 1 true [SHIFT 560];
   A 10112 1 true [SHIFT 5423]; A 10114 1 true [SHIFT 1473]; A 10116 1 true [SHIFT 3794];
   A 10118 1 true [SHIFT 13050]; A 10120 1 true [SHIFT 5258]; A 10122 1 true [SHIFT 3952];
   A 10124 1 true [SHIFT 430]; A 10126 1 true [SHIFT 165]; A 10128 1 true [SHIFT 5200];
   A 10130 1 true [SHIFT 4177]; A 10132 1 true [SHIFT 6471]; A 10134 1 true [SHIFT 6397];
   A 10136 1 true [SHIFT 11421]; A 10138 1 true [SHIFT 552]; A 10140 1 true [SHIFT 5422];
   A 10142 1 true [SHIFT 3793]; A 10144 1 true [SHIFT 13867]; A 10146 1 true [SHIFT 5250];
   A 10148 1 true [SHIFT 3905]; A 10150 1 true [SHIFT 429]; A 10152 1 true [SHIFT 164];
   A 10154 1 true [SHIFT 5192]; A 10156 1 true [SHIFT 4175]; A 10158 1 true [SHIFT 6357];
   A 10160 1 true [SHIFT 14064]; A 10162 1 true [SHIFT 11427]; A 10164 1 true [SHIFT 568];
   A 10166 1 true [SHIFT 5424]; A 10168 1 true [SHIFT 1137]; A 10170 1 true [SHIFT 3795];
   A 10172 1 true [SHIFT 13141]; A 10174 1 true [SHIFT 5261]; A 10176 1 true [SHIFT 3866];
   A 10178 1 true [SHIFT 431]; A 10180 1 true [SHIFT 166]; A 10182 1 true [SHIFT 5210];
   A 10184 1 true [SHIFT 4179]; A 10186 1 true [SHIFT 6442]; A 10188 1 true [SHIFT 15105];
   A 10190 1 true [SHIFT 7432]; A 10192 1 true [SHIFT 6393]; A 10194 1 true [SHIFT 6401];
   A 10196 1 true [SHIFT 6402]; A 10198 1 true [SHIFT 6331]; A 10200 1 true [SHIFT 11405];
   A 10202 1 true [SHIFT 521]; A 10204 1 true [SHIFT 5418]; A 10206 1 true [SHIFT 1150];
   A 10208 1 true [SHIFT 3475]; A 10210 1 true [SHIFT 13137]; A 10212 1 true [SHIFT 5219];
   A 10214 1 true [SHIFT 3953]; A 10216 1 true [SHIFT 425]; A 10218 1 true [SHIFT 159];
   A 10220 1 true [SHIFT 5151]; A 10222 1 true [SHIFT 4168]; A 10224 1 true [SHIFT 6405];
   A 10226 1 true [SHIFT 14135]; A 10228 1 true [SHIFT 5264]; A 10230 1 true [SHIFT 14136];
   A 10232 1 true [SHIFT 14169]
  ].

Definition ts_parse_actions_10234 : list (Z * list TSParseActionEntry) :=
  [
   A 10234 1 true [SHIFT 14193]; A 10236 1 true [SHIFT 11408]; A 10238 1 true [SHIFT 529];
   A 10240 1 true [SHIFT 5419]; A 10242 1 true [SHIFT 1163]; A 10244 1 true [SHIFT 3790];
   A 10246 1 true [SHIFT 13673]; A 10248 1 true [SHIFT 5228]; A 10250 1 true [SHIFT 3871];
   A 10252 1 true [SHIFT 426]; A 10254 1 true [SHIFT 160]; A 10256 1 true [SHIFT 5162];
   A 10258 1 true [SHIFT 4170]; A 10260 1 true [SHIFT 14201]; A 10262 1 true [SHIFT 14202];
   A 10264 1 true [SHIFT 14219]; A 10266 1 true [SHIFT 6489]; A 10268 1 true [SHIFT 14073];
   A 10270 1 true [SHIFT 14074]; A 10272 1 true [SHIFT 14088]; A 10274 1 true [SHIFT 15988];
   A 10276 1 true [SHIFT 11403]; A 10278 1 true [SHIFT 516]; A 10280 1 true [SHIFT 5417];
   A 10282 1 true [SHIFT 3788]; A 10284 1 true [SHIFT 13573]; A 10286 1 true [SHIFT 5208];
   A 10288 1 true [SHIFT 3817]; A 10290 1 true [SHIFT 424]; A 10292 1 true [SHIFT 158];
   A 10294 1 true [SHIFT 5139]; A 10296 1 true [SHIFT 4166]; A 10298 1 true [SHIFT 14101];
   A 10300 1 true [SHIFT 14107]; A 10302 1 true [SHIFT 14108]; A 10304 1 true [SHIFT 14111];
   A 10306 1 true [SHIFT 6474]; A 10308 1 true [SHIFT 11430]; A 10310 1 true [SHIFT 576];
   A 10312 1 true [SHIFT 5425]; A 10314 1 true [SHIFT 3796]; A 10316 1 true [SHIFT 13261];
   A 10318 1 true [SHIFT 5267]; A 10320 1 true [SHIFT 4033]; A 10322 1 true [SHIFT 432];
   A 10324 1 true [SHIFT 167]; A 10326 1 true [SHIFT 5220]; A 10328 1 true [SHIFT 4182];
   A 10330 1 true [SHIFT 6477]; A 10332 1 true [SHIFT 6487]; A 10334 1 true [SHIFT 1313];
   A 10336 1 true [SHIFT 11525]; A 10338 1 true [SHIFT 637]; A 10340 1 true [SHIFT 5367];
   A 10342 1 true [SHIFT 1447]; A 10344 1 true [SHIFT 3774]; A 10346 1 true [SHIFT 13269];
   A 10348 1 true [SHIFT 4902]; A 10350 1 true [SHIFT 4028]; A 10352 1 true [SHIFT 392];
   A 10354 1 true [SHIFT 138]; A 10356 1 true [SHIFT 4903]; A 10358 1 true [SHIFT 4123];
   A 10360 1 true [SHIFT 6503]; A 10362 1 true [SHIFT 6465]; A 10364 1 true [SHIFT 1202];
   A 10366 1 true [SHIFT 6512]; A 10368 1 true [SHIFT 6516]; A 10370 1 true [SHIFT 6519];
   A 10372 1 true [SHIFT 13291]; A 10374 1 true [SHIFT 11433]; A 10376 1 true [SHIFT 586];
   A 10378 1 true [SHIFT 5426]; A 10380 1 true [SHIFT 3797]; A 10382 1 true [SHIFT 13352];
   A 10384 1 true [SHIFT 5270]; A 10386 1 true [SHIFT 3841]; A 10388 1 true [SHIFT 433];
   A 10390 1 true [SHIFT 168]; A 10392 1 true [SHIFT 5229]; A 10394 1 true [SHIFT 4184];
   A 10396 1 true [SHIFT 13314];
   A 10398 2 true [REDUCE aux_sym_declProcFwd_repeat1 1 0 22; REDUCE aux_sym_declVar_repeat2 1 0 22];
   A 10401 2 false [REDUCE aux_sym_declProcFwd_repeat1 1 0 22; REDUCE aux_sym_declVar_repeat2 1 0 22];
   A 10404 1 true [REDUCE aux_sym_declVar_repeat2 1 0 22]; A 10406 1 true [SHIFT 13481];
   A 10408 1 true [SHIFT 6384]; A 10410 1 true [SHIFT 1049]; A 10412 1 true [SHIFT 13075];
   A 10414 1 true [SHIFT 13153]; A 10416 1 true [SHIFT 13174]; A 10418 1 true [SHIFT 13761];
   A 10420 1 true [SHIFT 1304]; A 10422 1 true [SHIFT 11383]; A 10424 1 true [SHIFT 473];
   A 10426 1 true [SHIFT 5410]; A 10428 1 true [SHIFT 3783]; A 10430 1 true [SHIFT 13083];
   A 10432 1 true [SHIFT 5137]; A 10434 1 true [SHIFT 3851]; A 10436 1 true [SHIFT 419];
   A 10438 1 true [SHIFT 136]; A 10440 1 true [SHIFT 5085]; A 10442 1 true [SHIFT 4155];
   A 10444 1 true [SHIFT 1229]; A 10446 1 true [SHIFT 6121]; A 10448 1 true [SHIFT 1240];
   A 10450 1 true [SHIFT 1245]; A 10452 1 true [SHIFT 1251]; A 10454 1 true [SHIFT 1302];
   A 10456 1 true [SHIFT 6764]; A 10458 1 true [SHIFT 5240]; A 10460 1 true [SHIFT 6125];
   A 10462 1 true [SHIFT 6587]; A 10464 1 true [SHIFT 5819]; A 10466 1 true [SHIFT 11397];
   A 10468 1 true [SHIFT 509]; A 10470 1 true [SHIFT 5415]; A 10472 1 true [SHIFT 3787];
   A 10474 1 true [SHIFT 14028]; A 10476 1 true [SHIFT 5181]; A 10478 1 true [SHIFT 3960];
   A 10480 1 true [SHIFT 423]; A 10482 1 true [SHIFT 157]; A 10484 1 true [SHIFT 5127];
   A 10486 1 true [SHIFT 4164]; A 10488 1 true [SHIFT 13634]; A 10490 1 true [SHIFT 1058];
   A 10492 1 true [SHIFT 5947]; A 10494 1 true [SHIFT 11368]; A 10496 1 true [SHIFT 571];
   A 10498 1 true [SHIFT 5401]; A 10500 1 true [SHIFT 1399]; A 10502 1 true [SHIFT 3778];
   A 10504 1 true [SHIFT 14019]; A 10506 1 true [SHIFT 5011]; A 10508 1 true [SHIFT 4016];
   A 10510 1 true [SHIFT 411]; A 10512 1 true [SHIFT 148]; A 10514 1 true [SHIFT 5014];
   A 10516 1 true [SHIFT 4143]; A 10518 1 true [SHIFT 1068]; A 10520 1 true [SHIFT 6181];
   A 10522 1 true [SHIFT 5821]; A 10524 1 true [SHIFT 5830]; A 10526 1 true [SHIFT 5844];
   A 10528 1 true [SHIFT 5847]; A 10530 1 true [SHIFT 6250]; A 10532 1 true [SHIFT 5849];
   A 10534 1 true [SHIFT 1076]; A 10536 1 true [SHIFT 1086]; A 10538 1 true [SHIFT 1273];
   A 10540 1 true [SHIFT 1122]; A 10542 1 true [SHIFT 1361]; A 10544 1 true [SHIFT 5026];
   A 10546 1 true [SHIFT 1374]; A 10548 1 true [SHIFT 1364]; A 10550 1 true [SHIFT 1340];
   A 10552 1 true [SHIFT 1311]; A 10554 1 true [SHIFT 1337]; A 10556 1 true [SHIFT 1342];
   A 10558 1 true [SHIFT 5855]; A 10560 1 true [SHIFT 1301]; A 10562 1 true [SHIFT 5857];
   A 10564 1 true [SHIFT 1169]; A 10566 1 true [REDUCE sym__procAttribute 2 0 54];
   A 10568 1 false [REDUCE sym__procAttribute 2 0 54]; A 10570 1 true [SHIFT 14266];
   A 10572 1 true [SHIFT 5237]; A 10574 1 true [SHIFT 6285];
   A 10576 1 true [REDUCE sym__procAttribute 3 0 0];
   A 10578 1 false [REDUCE sym__procAttribute 3 0 0]; A 10580 1 true [SHIFT 6345];
   A 10582 1 true [SHIFT 1414]; A 10584 1 true [SHIFT 5094]; A 10586 1 true [SHIFT 14455];
   A 10588 1 true [SHIFT 14557]; A 10590 1 true [REDUCE sym__procAttribute 4 0 164];
   A 10592 1 false [REDUCE sym__procAttribute 4 0 164];
   A 10594 1 true [REDUCE sym__procAttribute 5 0 217];
   A 10596 1 false [REDUCE sym__procAttribute 5 0 217]; A 10598 1 true [SHIFT 14621];
   A 10600 1 true [SHIFT 14625]; A 10602 1 true [SHIFT 14699]; A 10604 1 true [SHIFT 6243];
   A 10606 1 true [SHIFT 1036]; A 10608 1 true [SHIFT 6244]; A 10610 1 true [SHIFT 6343];
   A 10612 1 true [SHIFT 1406]; A 10614 1 true [REDUCE sym_procExternal 2 0 0];
   A 10616 1 false [REDUCE sym_procExternal 2 0 0]; A 10618 1 true [SHIFT 6263];
   A 10620 1 true [SHIFT 6266]; A 10622 1 true [REDUCE sym_procExternal 3 0 0];
   A 10624 1 false [REDUCE sym_procExternal 3 0 0]; A 10626 1 true [SHIFT 6267];
   A 10628 1 true [SHIFT 6269]; A 10630 1 true [REDUCE sym_procExternal 4 0 0];
   A 10632 1 false [REDUCE sym_procExternal 4 0 0];
   A 10634 1 true [REDUCE sym_procExternal 5 0 0];
   A 10636 1 false [REDUCE sym_procExternal 5 0 0];
   A 10638 1 true [REDUCE sym_procExternal 6 0 0];
   A 10640 1 false [REDUCE sym_procExternal 6 0 0]; A 10642 1 true [SHIFT 5936];
   A 10644 1 true [SHIFT 5082]; A 10646 1 true [SHIFT 5946]; A 10648 1 true [SHIFT 5999];
   A 10650 1 true [SHIFT 12562]; A 10652 1 true [SHIFT 5926]; A 10654 1 true [SHIFT 5931];
   A 10656 1 true [SHIFT 5918]; A 10658 1 true [SHIFT 5984]; A 10660 1 true [SHIFT 12658];
   A 10662 1 true [SHIFT 1092]; A 10664 1 true [SHIFT 1419]; A 10666 1 true [SHIFT 6369];
   A 10668 1 true [SHIFT 6382]; A 10670 1 true [SHIFT 6136]; A 10672 1 true [SHIFT 6396];
   A 10674 1 true [SHIFT 6420]; A 10676 1 true [SHIFT 6422]; A 10678 1 true [SHIFT 6424];
   A 10680 1 true [SHIFT 6004]; A 10682 1 true [SHIFT 6652]; A 10684 1 true [SHIFT 1443];
   A 10686 1 true [SHIFT 6660]; A 10688 1 true [SHIFT 6144]; A 10690 1 true [SHIFT 1111];
   A 10692 1 true [SHIFT 6680]; A 10694 1 true [SHIFT 6743];
   A 10696 1 false [REDUCE aux_sym_declVar_repeat2 1 0 22]; A 10698 1 true [SHIFT 1463];
   A 10700 1 true [SHIFT 6788]; A 10702 1 true [SHIFT 6791]; A 10704 1 true [SHIFT 14265];
   A 10706 1 true [REDUCE sym_block 4 0 0]; A 10708 1 false [REDUCE sym_block 4 0 0];
   A 10710 1 true [REDUCE sym_try 5 0 85]; A 10712 1 false [REDUCE sym_try 5 0 85];
   A 10714 1 true [SHIFT 6603]; A 10716 1 true [SHIFT 15727]; A 10718 1 true [SHIFT 1284];
   A 10720 1 true [REDUCE sym__statement 1 0 4]; A 10722 1 false [REDUCE sym__statement 1 0 4];
   A 10724 1 true [SHIFT 1097]; A 10726 1 true [SHIFT 1365]; A 10728 1 true [SHIFT 5814];
   A 10730 1 true [SHIFT 1317]; A 10732 1 true [REDUCE sym_with 5 0 142];
   A 10734 1 false [REDUCE sym_with 5 0 142]; A 10736 1 true [SHIFT 14089];
   A 10738 1 true [SHIFT 6702]; A 10740 1 true [REDUCE sym_case 6 0 0];
   A 10742 1 false [REDUCE sym_case 6 0 0]; A 10744 1 true [SHIFT 15522];
   A 10746 1 true [SHIFT 14112]; A 10748 1 true [SHIFT 6476];
   A 10750 1 true [REDUCE sym_for 6 0 187]; A 10752 1 false [REDUCE sym_for 6 0 187];
   A 10754 1 true [SHIFT 6753]; A 10756 1 true [SHIFT 6490]; A 10758 1 true [SHIFT 1285];
   A 10760 1 true [REDUCE sym_foreach 6 0 188]; A 10762 1 false [REDUCE sym_foreach 6 0 188];
   A 10764 1 true [SHIFT 1455]; A 10766 1 true [REDUCE sym_repeat 5 0 79];
   A 10768 1 false [REDUCE sym_repeat 5 0 79]; A 10770 1 true [SHIFT 1126];
   A 10772 1 true [SHIFT 6520]; A 10774 1 true [REDUCE sym_ifElse 6 0 191];
   A 10776 1 false [REDUCE sym_ifElse 6 0 191]; A 10778 1 true [REDUCE sym_try 6 0 140];
   A 10780 1 false [REDUCE sym_try 6 0 140]; A 10782 1 true [SHIFT 14117];
   A 10784 1 true [REDUCE sym_try 6 0 141]; A 10786 1 false [REDUCE sym_try 6 0 141];
   A 10788 1 true [SHIFT 6202]; A 10790 1 true [SHIFT 13816];
   A 10792 1 true [REDUCE sym_case 7 0 0]; A 10794 1 false [REDUCE sym_case 7 0 0];
   A 10796 1 true [REDUCE aux_sym_declProcFwd_repeat1 1 0 22];
   A 10798 1 false [REDUCE aux_sym_declProcFwd_repeat1 1 0 22]; A 10800 1 true [SHIFT 6457];
   A 10802 1 true [REDUCE sym_case 8 0 0]; A 10804 1 false [REDUCE sym_case 8 0 0];
   A 10806 1 true [REDUCE sym_case 9 0 0]; A 10808 1 false [REDUCE sym_case 9 0 0];
   A 10810 1 true [REDUCE sym_case 10 0 0]; A 10812 1 false [REDUCE sym_case 10 0 0];
   A 10814 1 true [SHIFT 6210]; A 10816 1 true [SHIFT 6406];
   A 10818 1 true [REDUCE sym_if 4 0 77]; A 10820 1 false [REDUCE sym_if 4 0 77];
   A 10822 1 true [SHIFT 5991]; A 10824 1 true [SHIFT 5906];
   A 10826 1 true [REDUCE sym_try 5 0 83]; A 10828 1 false [REDUCE sym_try 5 0 83];
   A 10830 1 true [SHIFT 5873]; A 10832 1 true [SHIFT 6409]; A 10834 1 true [SHIFT 6428];
   A 10836 1 true [SHIFT 15663]; A 10838 1 true [REDUCE sym_labeledStatement 2 0 0];
   A 10840 1 false [REDUCE sym_labeledStatement 2 0 0];
   A 10842 1 true [REDUCE sym_labeledStatement 3 0 0];
   A 10844 1 false [REDUCE sym_labeledStatement 3 0 0]; A 10846 1 true [REDUCE sym_try 5 0 82];
   A 10848 1 false [REDUCE sym_try 5 0 82]; A 10850 1 true [REDUCE sym_raise 2 0 0];
   A 10852 1 false [REDUCE sym_raise 2 0 0]; A 10854 1 true [REDUCE sym__statement 2 0 0];
   A 10856 1 false [REDUCE sym__statement 2 0 0]; A 10858 1 true [REDUCE sym_statement 2 0 0];
   A 10860 1 false [REDUCE sym_statement 2 0 0]; A 10862 1 true [REDUCE sym_asm 3 0 0];
   A 10864 1 false [REDUCE sym_asm 3 0 0]; A 10866 1 true [REDUCE sym_block 3 0 0];
   A 10868 1 false [REDUCE sym_block 3 0 0]; A 10870 1 true [REDUCE sym_goto 3 0 0];
   A 10872 1 false [REDUCE sym_goto 3 0 0]; A 10874 1 true [REDUCE sym_raise 3 0 15];
   A 10876 1 false [REDUCE sym_raise 3 0 15]; A 10878 1 true [REDUCE sym_try 5 0 84];
   A 10880 1 false [REDUCE sym_try 5 0 84]; A 10882 1 true [REDUCE sym_asm 4 0 0];
   A 10884 1 false [REDUCE sym_asm 4 0 0]; A 10886 1 true [REDUCE sym_repeat 4 0 39];
   A 10888 1 false [REDUCE sym_repeat 4 0 39]; A 10890 1 true [REDUCE sym_try 4 0 41];
   A 10892 1 false [REDUCE sym_try 4 0 41]; A 10894 1 true [REDUCE sym_try 4 0 42];
   A 10896 1 false [REDUCE sym_try 4 0 42]; A 10898 1 true [REDUCE sym_while 4 0 87];
   A 10900 1 false [REDUCE sym_while 4 0 87]; A 10902 1 true [REDUCE sym_with 4 0 88];
   A 10904 1 false [REDUCE sym_with 4 0 88]; A 10906 1 true [REDUCE sym_case 5 0 0];
   A 10908 1 false [REDUCE sym_case 5 0 0]; A 10910 1 true [REDUCE sym_ifElse 5 0 139];
   A 10912 1 false [REDUCE sym_ifElse 5 0 139]; A 10914 1 true [REDUCE sym_raise 5 0 78];
   A 10916 1 false [REDUCE sym_raise 5 0 78]; A 10918 1 true [SHIFT 14661];
   A 10920 1 true [REDUCE sym_declField 6 0 204];
   A 10922 1 false [REDUCE sym_declField 6 0 204]; A 10924 1 true [REDUCE sym_declProc 1 0 2];
   A 10926 1 false [REDUCE sym_declProc 1 0 2];
   A 10928 1 true [REDUCE sym_ppUsesBlockWithSemi 5 0 159];
   A 10930 1 false [REDUCE sym_ppUsesBlockWithSemi 5 0 159];
   A 10932 1 true [REDUCE sym_ppBlock 4 0 0]; A 10934 1 false [REDUCE sym_ppBlock 4 0 0];
   A 10936 2 true [REDUCE sym__statement 1 0 0; REDUCE aux_sym_ppBlock_repeat1 1 0 0];
   A 10939 2 false [REDUCE sym__statement 1 0 0; REDUCE aux_sym_ppBlock_repeat1 1 0 0];
   A 10942 1 true [REDUCE aux_sym_ppBlock_repeat1 1 1 0];
   A 10944 2 true [REDUCE sym__definition 1 0 0; REDUCE aux_sym_ppBlock_repeat1 1 1 0];
   A 10947 1 false [REDUCE aux_sym_ppBlock_repeat1 1 1 0];
   A 10949 1 true [REDUCE sym_declField 5 0 154];
   A 10951 1 false [REDUCE sym_declField 5 0 154]; A 10953 1 true [REDUCE sym__ppElse 1 0 0];
   A 10955 1 false [REDUCE sym__ppElse 1 0 0]; A 10957 1 true [REDUCE sym_declExports 3 0 0];
   A 10959 1 false [REDUCE sym_declExports 3 0 0]; A 10961 1 true [REDUCE sym_declLabels 3 0 0];
   A 10963 1 false [REDUCE sym_declLabels 3 0 0]; A 10965 1 true [REDUCE sym_declUses 3 0 0];
   A 10967 1 false [REDUCE sym_declUses 3 0 0];
   A 10969 1 true [REDUCE sym_ppUsesBlockWithSemi 4 0 97];
   A 10971 1 false [REDUCE sym_ppUsesBlockWithSemi 4 0 97];
   A 10973 1 true [REDUCE sym__defProcBody 2 0 19];
   A 10975 1 false [REDUCE sym__defProcBody 2 0 19];
   A 10977 1 true [REDUCE sym__defProcBody 2 0 20];
   A 10979 1 false [REDUCE sym__defProcBody 2 0 20];
   A 10981 1 true [REDUCE sym__defProcImpl 2 0 21];
   A 10983 1 false [REDUCE sym__defProcImpl 2 0 21];
   A 10985 1 true [REDUCE sym_defProc 5 0 107]; A 10987 1 false [REDUCE sym_defProc 5 0 107];
   A 10989 1 true [REDUCE sym__defProcBody 4 0 108];
   A 10991 1 false [REDUCE sym__defProcBody 4 0 108];
   A 10993 1 true [REDUCE sym_declExports 2 0 0];
   A 10995 1 false [REDUCE sym_declExports 2 0 0];
   A 10997 1 true [REDUCE sym_declField 6 0 201];
   A 10999 1 false [REDUCE sym_declField 6 0 201]; A 11001 1 true [REDUCE sym_declUses 2 0 0];
   A 11003 1 false [REDUCE sym_declUses 2 0 0]; A 11005 1 true [REDUCE sym_ppBlock 2 0 0];
   A 11007 1 false [REDUCE sym_ppBlock 2 0 0]; A 11009 1 true [REDUCE sym_defProc 2 0 7];
   A 11011 1 false [REDUCE sym_defProc 2 0 7]; A 11013 1 true [REDUCE sym_declExports 4 0 0];
   A 11015 1 false [REDUCE sym_declExports 4 0 0]; A 11017 1 true [REDUCE sym_declLabels 4 0 0];
   A 11019 1 false [REDUCE sym_declLabels 4 0 0];
   A 11021 1 true [REDUCE sym__defProcImpl 1 0 8];
   A 11023 1 false [REDUCE sym__defProcImpl 1 0 8];
   A 11025 1 true [REDUCE sym_ppUsesBlockWithSemi 3 0 47];
   A 11027 1 false [REDUCE sym_ppUsesBlockWithSemi 3 0 47];
   A 11029 1 true [REDUCE sym_defProc 4 0 49]; A 11031 1 false [REDUCE sym_defProc 4 0 49];
   A 11033 1 true [REDUCE sym_declField 7 0 243];
   A 11035 1 false [REDUCE sym_declField 7 0 243]; A 11037 1 true [REDUCE sym_declProc 2 0 9];
   A 11039 1 false [REDUCE sym_declProc 2 0 9]; A 11041 1 true [REDUCE sym_declProc 2 0 10];
   A 11043 1 false [REDUCE sym_declProc 2 0 10];
   A 11045 1 true [REDUCE sym__defProcBody 3 0 51];
   A 11047 1 false [REDUCE sym__defProcBody 3 0 51]; A 11049 1 true [REDUCE sym_ppBlock 3 0 0];
   A 11051 1 false [REDUCE sym_ppBlock 3 0 0];
   A 11053 2 true [REDUCE sym__definition 1 0 0; REDUCE aux_sym_ppBlock_repeat1 1 0 0];
   A 11056 1 true [SHIFT 5898]; A 11058 1 true [SHIFT 1390]; A 11060 1 true [SHIFT 3518];
   A 11062 1 true [SHIFT 5925]; A 11064 1 true [SHIFT 6159]; A 11066 1 true [SHIFT 14955];
   A 11068 1 true [SHIFT 7745]; A 11070 1 true [SHIFT 11487]; A 11072 1 true [SHIFT 612];
   A 11074 1 true [SHIFT 5430]; A 11076 1 true [SHIFT 15982]; A 11078 1 true [SHIFT 3798];
   A 11080 1 true [SHIFT 6160]; A 11082 1 true [SHIFT 13005]; A 11084 1 true [SHIFT 5305];
   A 11086 1 true [SHIFT 4067]; A 11088 1 true [SHIFT 435]; A 11090 1 true [SHIFT 169];
   A 11092 1 true [SHIFT 15532]; A 11094 1 true [SHIFT 5306]; A 11096 1 true [SHIFT 4186];
   A 11098 1 true [SHIFT 1388]; A 11100 1 true [SHIFT 5697]; A 11102 1 true [SHIFT 1387];
   A 11104 1 true [SHIFT 6123]; A 11106 1 true [SHIFT 1385]; A 11108 1 true [SHIFT 6145];
   A 11110 1 true [SHIFT 1389]; A 11112 1 true [SHIFT 5911]; A 11114 1 true [SHIFT 1394];
   A 11116 1 true [SHIFT 6439]; A 11118 1 true [SHIFT 1386]; A 11120 1 true [SHIFT 1393];
   A 11122 1 true [REDUCE aux_sym__ppStatementBlock_repeat2 1 0 0];
   A 11124 1 true [REDUCE aux_sym__ppStatementBlock_repeat2 2 0 0];
   A 11126 2 true [REDUCE aux_sym__ppStatementBlock_repeat1 2 0 0; SHIFT_REPEAT 5898];
   A 11129 2 true [REDUCE aux_sym__ppStatementBlock_repeat1 2 0 0; SHIFT_REPEAT 1394];
   A 11132 2 true [REDUCE aux_sym__ppStatementBlock_repeat1 2 0 0; SHIFT_REPEAT 3518];
   A 11135 2 false [REDUCE aux_sym__ppStatementBlock_repeat1 2 0 0; SHIFT_REPEAT 4804];
   A 11138 2 true [REDUCE aux_sym__ppStatementBlock_repeat1 2 0 0; SHIFT_REPEAT 6994];
   A 11141 2 true [REDUCE aux_sym__ppStatementBlock_repeat1 2 0 0; SHIFT_REPEAT 12264];
   A 11144 2 false [REDUCE aux_sym__ppStatementBlock_repeat1 2 0 0; SHIFT_REPEAT 7888];
   A 11147 2 true [REDUCE aux_sym__ppStatementBlock_repeat1 2 0 0; SHIFT_REPEAT 7888];
   A 11150 2 true [REDUCE aux_sym__ppStatementBlock_repeat1 2 0 0; SHIFT_REPEAT 5972];
   A 11153 1 true [REDUCE aux_sym__ppStatementBlock_repeat1 2 0 0];
   A 11155 2 false [REDUCE aux_sym__ppStatementBlock_repeat1 2 0 0; SHIFT_REPEAT 4701];
   A 11158 2 true [REDUCE aux_sym__ppStatementBlock_repeat1 2 0 0; SHIFT_REPEAT 4701];
   A 11161 2 true [REDUCE aux_sym__ppStatementBlock_repeat1 2 0 0; SHIFT_REPEAT 7765];
   A 11164 2 true [REDUCE aux_sym__ppStatementBlock_repeat1 2 0 0; SHIFT_REPEAT 14955];
   A 11167 2 true [REDUCE aux_sym__ppStatementBlock_repeat1 2 0 0; SHIFT_REPEAT 7745];
   A 11170 2 true [REDUCE aux_sym__ppStatementBlock_repeat1 2 0 0; SHIFT_REPEAT 7613];
   A 11173 2 true [REDUCE aux_sym__ppStatementBlock_repeat1 2 0 0; SHIFT_REPEAT 11487];
   A 11176 2 true [REDUCE aux_sym__ppStatementBlock_repeat1 2 0 0; SHIFT_REPEAT 612];
   A 11179 2 true [REDUCE aux_sym__ppStatementBlock_repeat1 2 0 0; SHIFT_REPEAT 5430];
   A 11182 2 true [REDUCE aux_sym__ppStatementBlock_repeat1 2 0 0; SHIFT_REPEAT 15982];
   A 11185 2 true [REDUCE aux_sym__ppStatementBlock_repeat1 2 0 0; SHIFT_REPEAT 3798];
   A 11188 2 true [REDUCE aux_sym__ppStatementBlock_repeat1 2 0 0; SHIFT_REPEAT 6160];
   A 11191 2 true [REDUCE aux_sym__ppStatementBlock_repeat1 2 0 0; SHIFT_REPEAT 13005];
   A 11194 2 true [REDUCE aux_sym__ppStatementBlock_repeat1 2 0 0; SHIFT_REPEAT 5305];
   A 11197 2 true [REDUCE aux_sym__ppStatementBlock_repeat1 2 0 0; SHIFT_REPEAT 7614];
   A 11200 2 true [REDUCE aux_sym__ppStatementBlock_repeat1 2 0 0; SHIFT_REPEAT 4067];
   A 11203 2 true [REDUCE aux_sym__ppStatementBlock_repeat1 2 0 0; SHIFT_REPEAT 435];
   A 11206 2 true [REDUCE aux_sym__ppStatementBlock_repeat1 2 0 0; SHIFT_REPEAT 15766];
   A 11209 2 true [REDUCE aux_sym__ppStatementBlock_repeat1 2 0 0; SHIFT_REPEAT 169];
   A 11212 2 true [REDUCE aux_sym__ppStatementBlock_repeat1 2 0 0; SHIFT_REPEAT 15532];
   A 11215 2 true [REDUCE aux_sym__ppStatementBlock_repeat1 2 0 0; SHIFT_REPEAT 5306];
   A 11218 2 true [REDUCE aux_sym__ppStatementBlock_repeat1 2 0 0; SHIFT_REPEAT 4186];
   A 11221 2 true [REDUCE aux_sym__statementsTr_repeat1 2 0 0; SHIFT_REPEAT 1395];
   A 11224 2 true [REDUCE aux_sym__statementsTr_repeat1 2 0 0; SHIFT_REPEAT 3518];
   A 11227 2 false [REDUCE aux_sym__statementsTr_repeat1 2 0 0; SHIFT_REPEAT 4804];
   A 11230 2 true [REDUCE aux_sym__statementsTr_repeat1 2 0 0; SHIFT_REPEAT 6994];
   A 11233 2 true [REDUCE aux_sym__statementsTr_repeat1 2 0 0; SHIFT_REPEAT 12264];
   A 11236 2 false [REDUCE aux_sym__statementsTr_repeat1 2 0 0; SHIFT_REPEAT 7888];
   A 11239 2 true [REDUCE aux_sym__statementsTr_repeat1 2 0 0; SHIFT_REPEAT 7888];
   A 11242 2 true [REDUCE aux_sym__statementsTr_repeat1 2 0 0; SHIFT_REPEAT 5972];
   A 11245 2 false [REDUCE aux_sym__statementsTr_repeat1 2 0 0; SHIFT_REPEAT 4701];
   A 11248 2 true [REDUCE aux_sym__statementsTr_repeat1 2 0 0; SHIFT_REPEAT 4701];
   A 11251 2 true [REDUCE aux_sym__statementsTr_repeat1 2 0 0; SHIFT_REPEAT 7765];
   A 11254 2 true [REDUCE aux_sym__statementsTr_repeat1 2 0 0; SHIFT_REPEAT 15491];
   A 11257 2 true [REDUCE aux_sym__statementsTr_repeat1 2 0 0; SHIFT_REPEAT 7711];
   A 11260 2 true [REDUCE aux_sym__statementsTr_repeat1 2 0 0; SHIFT_REPEAT 7613];
   A 11263 2 true [REDUCE aux_sym__statementsTr_repeat1 2 0 0; SHIFT_REPEAT 11494];
   A 11266 2 true [REDUCE aux_sym__statementsTr_repeat1 2 0 0; SHIFT_REPEAT 617];
   A 11269 2 true [REDUCE aux_sym__statementsTr_repeat1 2 0 0; SHIFT_REPEAT 5438];
   A 11272 2 true [REDUCE aux_sym__statementsTr_repeat1 2 0 0; SHIFT_REPEAT 15982];
   A 11275 2 true [REDUCE aux_sym__statementsTr_repeat1 2 0 0; SHIFT_REPEAT 3799];
   A 11278 2 true [REDUCE aux_sym__statementsTr_repeat1 2 0 0; SHIFT_REPEAT 6160];
   A 11281 2 true [REDUCE aux_sym__statementsTr_repeat1 2 0 0; SHIFT_REPEAT 13507];
   A 11284 2 true [REDUCE aux_sym__statementsTr_repeat1 2 0 0; SHIFT_REPEAT 5328];
   A 11287 2 true [REDUCE aux_sym__statementsTr_repeat1 2 0 0; SHIFT_REPEAT 7614];
   A 11290 2 true [REDUCE aux_sym__statementsTr_repeat1 2 0 0; SHIFT_REPEAT 4070];
   A 11293 2 true [REDUCE aux_sym__statementsTr_repeat1 2 0 0; SHIFT_REPEAT 437];
   A 11296 2 true [REDUCE aux_sym__statementsTr_repeat1 2 0 0; SHIFT_REPEAT 15766];
   A 11299 2 true [REDUCE aux_sym__statementsTr_repeat1 2 0 0; SHIFT_REPEAT 170];
   A 11302 2 true [REDUCE aux_sym__statementsTr_repeat1 2 0 0; SHIFT_REPEAT 15532];
   A 11305 2 true [REDUCE aux_sym__statementsTr_repeat1 2 0 0; SHIFT_REPEAT 5329];
   A 11308 2 true [REDUCE aux_sym__statementsTr_repeat1 2 0 0; SHIFT_REPEAT 4188];
   A 11311 1 true [REDUCE sym_exprBrackets 2 0 0];
   A 11313 2 true [REDUCE sym_exprBrackets 2 0 0; REDUCE aux_sym_rttiAttributes_repeat2 2 0 0];
   A 11316 1 false [REDUCE sym_exprBrackets 2 0 0];
   A 11318 1 true [REDUCE aux_sym_rttiAttributes_repeat2 2 0 0]; A 11320 1 true [SHIFT 6475];
   A 11322 1 true [SHIFT 15151]; A 11324 1 true [SHIFT 7725]; A 11326 1 true [SHIFT 11499];
   A 11328 1 true [SHIFT 626]; A 11330 1 true [SHIFT 5443]; A 11332 1 true [SHIFT 3800];
   A 11334 1 true [SHIFT 13751]; A 11336 1 true [SHIFT 5341]; A 11338 1 true [SHIFT 4071];
   A 11340 1 true [SHIFT 439]; A 11342 1 true [SHIFT 171]; A 11344 1 true [SHIFT 5344];
   A 11346 1 true [SHIFT 4190]; A 11348 1 true [SHIFT 6593]; A 11350 1 true [SHIFT 11494];
   A 11352 1 true [SHIFT 617]; A 11354 1 true [SHIFT 5438]; A 11356 1 true [SHIFT 3799];
   A 11358 1 true [SHIFT 13507]; A 11360 1 true [SHIFT 5328]; A 11362 1 true [SHIFT 4070];
   A 11364 1 true [SHIFT 437]; A 11366 1 true [SHIFT 170]; A 11368 1 true [SHIFT 5329];
   A 11370 1 true [SHIFT 4188]; A 11372 1 true [SHIFT 11509]; A 11374 1 true [SHIFT 647];
   A 11376 1 true [SHIFT 5460]; A 11378 1 true [SHIFT 3803]; A 11380 1 true [SHIFT 13142];
   A 11382 1 true [SHIFT 5381]; A 11384 1 true [SHIFT 4075]; A 11386 1 true [SHIFT 445];
   A 11388 1 true [SHIFT 174]; A 11390 1 true [SHIFT 5383]; A 11392 1 true [SHIFT 4196];
   A 11394 1 true [SHIFT 11511]; A 11396 1 true [SHIFT 656]; A 11398 1 true [SHIFT 5464];
   A 11400 1 true [SHIFT 3804]; A 11402 1 true [SHIFT 13211]; A 11404 1 true [SHIFT 5392];
   A 11406 1 true [SHIFT 4076]; A 11408 1 true [SHIFT 413]; A 11410 1 true [SHIFT 140];
   A 11412 1 true [SHIFT 5393]; A 11414 1 true [SHIFT 4198]; A 11416 1 true [SHIFT 11508];
   A 11418 1 true [SHIFT 642]; A 11420 1 true [SHIFT 5454]; A 11422 1 true [SHIFT 3802];
   A 11424 1 true [SHIFT 13064]; A 11426 1 true [SHIFT 5368]; A 11428 1 true [SHIFT 4074];
   A 11430 1 true [SHIFT 443]; A 11432 1 true [SHIFT 173]; A 11434 1 true [SHIFT 5371];
   A 11436 1 true [SHIFT 4194]; A 11438 1 true [SHIFT 11503]; A 11440 1 true [SHIFT 634];
   A 11442 1 true [SHIFT 5449]; A 11444 1 true [SHIFT 3801]; A 11446 1 true [SHIFT 14078];
   A 11448 1 true [SHIFT 5356]; A 11450 1 true [SHIFT 4072]; A 11452 1 true [SHIFT 441];
   A 11454 1 true [SHIFT 172]; A 11456 1 true [SHIFT 5358]; A 11458 1 true [SHIFT 4192];
   A 11460 2 true [REDUCE aux_sym_exceptionElse_repeat1 2 0 0; SHIFT_REPEAT 1437];
   A 11463 2 true [REDUCE aux_sym_exceptionElse_repeat1 2 0 0; SHIFT_REPEAT 3518];
   A 11466 2 false [REDUCE aux_sym_exceptionElse_repeat1 2 0 0; SHIFT_REPEAT 4804];
   A 11469 2 true [REDUCE aux_sym_exceptionElse_repeat1 2 0 0; SHIFT_REPEAT 6994];
   A 11472 2 true [REDUCE aux_sym_exceptionElse_repeat1 2 0 0; SHIFT_REPEAT 12264];
   A 11475 2 false [REDUCE aux_sym_exceptionElse_repeat1 2 0 0; SHIFT_REPEAT 7888];
   A 11478 2 true [REDUCE aux_sym_exceptionElse_repeat1 2 0 0; SHIFT_REPEAT 7888];
   A 11481 2 false [REDUCE aux_sym_exceptionElse_repeat1 2 0 0; SHIFT_REPEAT 4701];
   A 11484 2 true [REDUCE aux_sym_exceptionElse_repeat1 2 0 0; SHIFT_REPEAT 4701];
   A 11487 2 true [REDUCE aux_sym_exceptionElse_repeat1 2 0 0; SHIFT_REPEAT 7765];
   A 11490 2 true [REDUCE aux_sym_exceptionElse_repeat1 2 0 0; SHIFT_REPEAT 15151];
   A 11493 2 true [REDUCE aux_sym_exceptionElse_repeat1 2 0 0; SHIFT_REPEAT 7725];
   A 11496 2 true [REDUCE aux_sym_exceptionElse_repeat1 2 0 0; SHIFT_REPEAT 7613];
   A 11499 2 true [REDUCE aux_sym_exceptionElse_repeat1 2 0 0; SHIFT_REPEAT 11509];
   A 11502 2 true [REDUCE aux_sym_exceptionElse_repeat1 2 0 0; SHIFT_REPEAT 647];
   A 11505 2 true [REDUCE aux_sym_exceptionElse_repeat1 2 0 0; SHIFT_REPEAT 5460];
   A 11508 2 true [REDUCE aux_sym_exceptionElse_repeat1 2 0 0; SHIFT_REPEAT 15982];
   A 11511 2 true [REDUCE aux_sym_exceptionElse_repeat1 2 0 0; SHIFT_REPEAT 3803];
   A 11514 2 true [REDUCE aux_sym_exceptionElse_repeat1 2 0 0; SHIFT_REPEAT 6160];
   A 11517 2 true [REDUCE aux_sym_exceptionElse_repeat1 2 0 0; SHIFT_REPEAT 13142];
   A 11520 2 true [REDUCE aux_sym_exceptionElse_repeat1 2 0 0; SHIFT_REPEAT 5381];
   A 11523 2 true [REDUCE aux_sym_exceptionElse_repeat1 2 0 0; SHIFT_REPEAT 7614];
   A 11526 2 true [REDUCE aux_sym_exceptionElse_repeat1 2 0 0; SHIFT_REPEAT 4075];
   A 11529 2 true [REDUCE aux_sym_exceptionElse_repeat1 2 0 0; SHIFT_REPEAT 445];
   A 11532 2 true [REDUCE aux_sym_exceptionElse_repeat1 2 0 0; SHIFT_REPEAT 15766];
   A 11535 2 true [REDUCE aux_sym_exceptionElse_repeat1 2 0 0; SHIFT_REPEAT 174];
   A 11538 2 true [REDUCE aux_sym_exceptionElse_repeat1 2 0 0; SHIFT_REPEAT 15532];
   A 11541 2 true [REDUCE aux_sym_exceptionElse_repeat1 2 0 0; SHIFT_REPEAT 5383];
   A 11544 2 true [REDUCE aux_sym_exceptionElse_repeat1 2 0 0; SHIFT_REPEAT 4196];
   A 11547 1 true [SHIFT 15341]; A 11549 1 true [SHIFT 14141];
   A 11551 2 true [REDUCE aux_sym_exceptionElse_repeat1 1 0 0; SHIFT 15522];
   A 11554 2 true [REDUCE aux_sym_exceptionElse_repeat1 1 0 0; SHIFT 3518];
   A 11557 2 false [REDUCE aux_sym_exceptionElse_repeat1 1 0 0; SHIFT 4804];
   A 11560 2 true [REDUCE aux_sym_exceptionElse_repeat1 1 0 0; SHIFT 6994];
   A 11563 2 true [REDUCE aux_sym_exceptionElse_repeat1 1 0 0; SHIFT 12264];
   A 11566 2 false [REDUCE aux_sym_exceptionElse_repeat1 1 0 0; SHIFT 7888];
   A 11569 2 true [REDUCE aux_sym_exceptionElse_repeat1 1 0 0; SHIFT 7888];
   A 11572 2 false [REDUCE aux_sym_exceptionElse_repeat1 1 0 0; SHIFT 4701];
   A 11575 2 true [REDUCE aux_sym_exceptionElse_repeat1 1 0 0; SHIFT 4701];
   A 11578 2 true [REDUCE aux_sym_exceptionElse_repeat1 1 0 0; SHIFT 7765];
   A 11581 2 true [REDUCE aux_sym_exceptionElse_repeat1 1 0 0; SHIFT 15151];
   A 11584 2 true [REDUCE aux_sym_exceptionElse_repeat1 1 0 0; SHIFT 7725];
   A 11587 2 true [REDUCE aux_sym_exceptionElse_repeat1 1 0 0; SHIFT 7613];
   A 11590 2 true [REDUCE aux_sym_exceptionElse_repeat1 1 0 0; SHIFT 11503];
   A 11593 2 true [REDUCE aux_sym_exceptionElse_repeat1 1 0 0; SHIFT 634];
   A 11596 2 true [REDUCE aux_sym_exceptionElse_repeat1 1 0 0; SHIFT 5449];
   A 11599 2 true [REDUCE aux_sym_exceptionElse_repeat1 1 0 0; SHIFT 15982];
   A 11602 2 true [REDUCE aux_sym_exceptionElse_repeat1 1 0 0; SHIFT 3801];
   A 11605 2 true [REDUCE aux_sym_exceptionElse_repeat1 1 0 0; SHIFT 6160];
   A 11608 2 true [REDUCE aux_sym_exceptionElse_repeat1 1 0 0; SHIFT 14078];
   A 11611 2 true [REDUCE aux_sym_exceptionElse_repeat1 1 0 0; SHIFT 5356];
   A 11614 2 true [REDUCE aux_sym_exceptionElse_repeat1 1 0 0; SHIFT 7614];
   A 11617 2 true [REDUCE aux_sym_exceptionElse_repeat1 1 0 0; SHIFT 4072];
   A 11620 2 true [REDUCE aux_sym_exceptionElse_repeat1 1 0 0; SHIFT 441];
   A 11623 2 true [REDUCE aux_sym_exceptionElse_repeat1 1 0 0; SHIFT 15766];
   A 11626 2 true [REDUCE aux_sym_exceptionElse_repeat1 1 0 0; SHIFT 172];
   A 11629 2 true [REDUCE aux_sym_exceptionElse_repeat1 1 0 0; SHIFT 15532];
   A 11632 2 true [REDUCE aux_sym_exceptionElse_repeat1 1 0 0; SHIFT 5358];
   A 11635 2 true [REDUCE aux_sym_exceptionElse_repeat1 1 0 0; SHIFT 4192];
   A 11638 2 true [REDUCE sym__declProc 7 0 168; SHIFT 4139]; A 11641 1 true [SHIFT 4468];
   A 11643 1 true [SHIFT 12824]; A 11645 1 true [SHIFT 4077]; A 11647 1 true [SHIFT 3867];
   A 11649 1 true [SHIFT 4478]; A 11651 1 true [SHIFT 14986]; A 11653 1 true [SHIFT 13839];
   A 11655 1 true [SHIFT 13840]; A 11657 2 true [REDUCE sym_declVars 3 0 0; SHIFT 13840];
   A 11660 2 true [REDUCE sym__declProc 3 0 11; SHIFT 4139];
   A 11663 2 true [REDUCE aux_sym_declVars_repeat1 2 0 0; SHIFT_REPEAT 13839];
   A 11666 2 true [REDUCE aux_sym_declVars_repeat1 2 0 0; SHIFT_REPEAT 13840];
   A 11669 2 true [REDUCE sym__declProc 4 0 24; SHIFT 4139]; A 11672 1 true [SHIFT 13812];
   A 11674 1 true [SHIFT 13813]; A 11676 2 true [REDUCE sym_declVars 1 0 0; SHIFT 13813];
   A 11679 2 true [REDUCE sym_declVars 2 0 0; SHIFT 13813];
   A 11682 2 true [REDUCE sym__declProc 4 0 27; SHIFT 4139];
   A 11685 2 true [REDUCE sym__declProc 4 0 31; SHIFT 4139];
   A 11688 2 true [REDUCE sym__declProc 4 0 32; SHIFT 4139];
   A 11691 2 true [REDUCE sym_declVars 3 0 0; SHIFT 13813];
   A 11694 2 true [REDUCE sym__declProc 5 0 56; SHIFT 4139];
   A 11697 2 true [REDUCE sym__declProc 5 0 57; SHIFT 4139];
   A 11700 2 true [REDUCE sym__declProc 5 0 58; SHIFT 4139];
   A 11703 2 true [REDUCE sym__declProc 5 0 59; SHIFT 4139];
   A 11706 2 true [REDUCE aux_sym_declVars_repeat1 2 0 0; SHIFT_REPEAT 13812];
   A 11709 2 true [REDUCE aux_sym_declVars_repeat1 2 0 0; SHIFT_REPEAT 13813];
   A 11712 2 true [REDUCE sym__declProc 5 0 66; SHIFT 4139];
   A 11715 2 true [REDUCE sym__declProc 5 0 68; SHIFT 4139];
   A 11718 2 true [REDUCE sym__declProc 5 0 70; SHIFT 4139];
   A 11721 2 true [REDUCE sym__declProc 5 0 71; SHIFT 4139];
   A 11724 2 true [REDUCE sym__declProc 6 0 110; SHIFT 4139];
   A 11727 2 true [REDUCE sym__declProc 6 0 111; SHIFT 4139];
   A 11730 2 true [REDUCE sym__declProc 6 0 112; SHIFT 4139];
   A 11733 2 true [REDUCE sym__declProc 6 0 113; SHIFT 4139];
   A 11736 2 true [REDUCE sym__declProc 6 0 114; SHIFT 4139];
   A 11739 2 true [REDUCE sym__declProc 6 0 115; SHIFT 4139];
   A 11742 2 true [REDUCE sym__declProc 6 0 116; SHIFT 4139];
   A 11745 2 true [REDUCE sym_declVars 2 0 0; SHIFT 13840];
   A 11748 2 true [REDUCE sym__declProc 6 0 125; SHIFT 4139];
   A 11751 2 true [REDUCE sym__declProc 6 0 129; SHIFT 4139];
   A 11754 2 true [REDUCE sym__declProc 6 0 130; SHIFT 4139];
   A 11757 2 true [REDUCE sym__declProc 7 0 165; SHIFT 4139];
   A 11760 2 true [REDUCE sym__declProc 7 0 166; SHIFT 4139];
   A 11763 2 true [REDUCE sym__declProc 7 0 167; SHIFT 4139];
   A 11766 2 true [REDUCE sym__declProc 7 0 169; SHIFT 4139];
   A 11769 2 true [REDUCE sym__declProc 7 0 170; SHIFT 4139];
   A 11772 2 true [REDUCE sym__declProc 7 0 171; SHIFT 4139];
   A 11775 2 true [REDUCE sym__declProc 7 0 172; SHIFT 4139];
   A 11778 2 true [REDUCE sym__declProc 7 0 180; SHIFT 4139];
   A 11781 2 true [REDUCE sym__declProc 7 0 185; SHIFT 4139];
   A 11784 2 true [REDUCE sym__declProc 7 0 186; SHIFT 4139];
   A 11787 2 true [REDUCE sym__declProc 8 0 218; SHIFT 4139];
   A 11790 2 true [REDUCE sym__declProc 8 0 219; SHIFT 4139];
   A 11793 2 true [REDUCE sym__declProc 8 0 220; SHIFT 4139];
   A 11796 2 true [REDUCE sym__declProc 8 0 221; SHIFT 4139];
   A 11799 2 true [REDUCE sym__declProc 8 0 222; SHIFT 4139];
   A 11802 2 true [REDUCE sym__declProc 8 0 223; SHIFT 4139];
   A 11805 2 true [REDUCE sym__declProc 8 0 224; SHIFT 4139];
   A 11808 2 true [REDUCE sym__declProc 8 0 232; SHIFT 4139];
   A 11811 2 true [REDUCE sym__declProc 9 0 261; SHIFT 4139];
   A 11814 2 true [REDUCE sym__declProc 9 0 262; SHIFT 4139];
   A 11817 2 true [REDUCE sym__declProc 9 0 263; SHIFT 4139];
   A 11820 2 true [REDUCE sym__declProc 9 0 264; SHIFT 4139];
   A 11823 2 true [REDUCE sym__declProc 10 0 290; SHIFT 4139];
   A 11826 2 true [REDUCE aux_sym__declProc_repeat1 2 0 55; SHIFT_REPEAT 4139];
   A 11829 1 true [SHIFT 13788]; A 11831 1 true [SHIFT 13789];
   A 11833 2 true [REDUCE sym_declVars 1 0 0; SHIFT 13789];
   A 11836 2 true [REDUCE sym_declVars 2 0 0; SHIFT 13789];
   A 11839 2 true [REDUCE sym_declVars 3 0 0; SHIFT 13789];
   A 11842 2 true [REDUCE aux_sym_declVars_repeat1 2 0 0; SHIFT_REPEAT 13788];
   A 11845 2 true [REDUCE aux_sym_declVars_repeat1 2 0 0; SHIFT_REPEAT 13789];
   A 11848 2 true [REDUCE sym_declVars 1 0 0; SHIFT 13840];
   A 11851 2 true [REDUCE sym__declProc 6 0 124; SHIFT 4139];
   A 11854 2 true [REDUCE sym_declVar 6 0 206; SHIFT 3727]; A 11857 1 true [SHIFT 3437];
   A 11859 2 true [REDUCE sym_declVar 6 0 95; SHIFT 3733]; A 11862 1 true [SHIFT 3462];
   A 11864 2 true [REDUCE sym_declVar 6 0 198; SHIFT 3733];
   A 11867 2 true [REDUCE sym_declVar 6 0 124; SHIFT 3733];
   A 11870 2 true [REDUCE sym_declVar 6 0 132; SHIFT 3733];
   A 11873 2 true [REDUCE sym_declVar 6 0 199; SHIFT 3733];
   A 11876 2 true [REDUCE sym_declVar 6 0 200; SHIFT 3733];
   A 11879 2 true [REDUCE sym_declVar 6 0 201; SHIFT 3733];
   A 11882 2 true [REDUCE sym_declVar 6 0 202; SHIFT 3733];
   A 11885 2 true [REDUCE sym_declVar 6 0 203; SHIFT 3733];
   A 11888 2 true [REDUCE sym_declVar 6 0 204; SHIFT 3733];
   A 11891 2 true [REDUCE sym_declVar 6 0 205; SHIFT 3733];
   A 11894 2 true [REDUCE sym_declVar 6 0 206; SHIFT 3733];
   A 11897 2 true [REDUCE sym_declVar 8 0 277; SHIFT 3727];
   A 11900 2 true [REDUCE sym_declVar 8 0 278; SHIFT 3727];
   A 11903 2 true [REDUCE sym_declVar 5 0 151; SHIFT 3733];
   A 11906 2 true [REDUCE sym_declVar 5 0 152; SHIFT 3733];
   A 11909 2 true [REDUCE sym_declVar 5 0 66; SHIFT 3733];
   A 11912 2 true [REDUCE sym_declVar 5 0 153; SHIFT 3733];
   A 11915 2 true [REDUCE sym_declVar 5 0 154; SHIFT 3733];
   A 11918 2 true [REDUCE sym_declVar 5 0 155; SHIFT 3733];
   A 11921 2 true [REDUCE sym_declVar 4 0 95; SHIFT 3730]; A 11924 1 true [SHIFT 3388];
   A 11926 2 true [REDUCE sym_declVar 8 0 274; SHIFT 3727];
   A 11929 2 true [REDUCE sym_declVar 7 0 239; SHIFT 3733];
   A 11932 2 true [REDUCE sym_declVar 7 0 240; SHIFT 3733];
   A 11935 2 true [REDUCE sym_declVar 7 0 66; SHIFT 3733];
   A 11938 2 true [REDUCE sym_declVar 7 0 238; SHIFT 3733];
   A 11941 2 true [REDUCE sym_declVar 7 0 153; SHIFT 3733];
   A 11944 2 true [REDUCE sym_declVar 7 0 241; SHIFT 3733];
   A 11947 2 true [REDUCE sym_declVar 7 0 242; SHIFT 3733];
   A 11950 2 true [REDUCE sym_declVar 7 0 243; SHIFT 3733];
   A 11953 2 true [REDUCE sym_declVar 7 0 244; SHIFT 3733];
   A 11956 2 true [REDUCE sym_declVar 7 0 245; SHIFT 3733];
   A 11959 2 true [REDUCE sym_declVar 7 0 154; SHIFT 3733];
   A 11962 2 true [REDUCE sym_declVar 7 0 246; SHIFT 3733];
   A 11965 2 true [REDUCE sym_declVar 7 0 155; SHIFT 3733];
   A 11968 2 true [REDUCE sym_declVar 7 0 247; SHIFT 3733];
   A 11971 2 true [REDUCE sym_declVar 8 0 275; SHIFT 3727];
   A 11974 2 true [REDUCE sym_declVar 8 0 202; SHIFT 3727];
   A 11977 2 true [REDUCE sym_declVar 8 0 276; SHIFT 3727];
   A 11980 2 true [REDUCE sym_declVar 4 0 94; SHIFT 3730];
   A 11983 2 true [REDUCE sym_declVar 8 0 273; SHIFT 3733];
   A 11986 2 true [REDUCE sym_declVar 8 0 274; SHIFT 3733];
   A 11989 2 true [REDUCE sym_declVar 8 0 201; SHIFT 3733];
   A 11992 2 true [REDUCE sym_declVar 8 0 275; SHIFT 3733];
   A 11995 2 true [REDUCE sym_declVar 8 0 202; SHIFT 3733];
   A 11998 2 true [REDUCE sym_declVar 8 0 276; SHIFT 3733];
   A 12001 2 true [REDUCE sym_declVar 8 0 277; SHIFT 3733];
   A 12004 2 true [REDUCE sym_declVar 8 0 278; SHIFT 3733];
   A 12007 2 true [REDUCE sym_declVar 4 0 94; SHIFT 3733];
   A 12010 2 true [REDUCE sym_declVar 9 0 294; SHIFT 3733];
   A 12013 2 true [REDUCE sym_declVar 9 0 295; SHIFT 3733];
   A 12016 2 true [REDUCE sym_declVar 9 0 294; SHIFT 3727];
   A 12019 2 true [REDUCE sym_declVar 9 0 295; SHIFT 3727];
   A 12022 2 true [REDUCE sym_declVar 5 0 150; SHIFT 3730];
   A 12025 2 true [REDUCE sym_declVar 4 0 95; SHIFT 3733];
   A 12028 2 true [REDUCE sym_declVar 8 0 201; SHIFT 3727];
   A 12031 2 true [REDUCE sym_declVar 5 0 147; SHIFT 3730];
   A 12034 2 true [REDUCE sym_declVar 8 0 273; SHIFT 3727];
   A 12037 2 true [REDUCE sym_declVar 5 0 150; SHIFT 3733];
   A 12040 2 true [REDUCE sym_declVar 5 0 151; SHIFT 3730];
   A 12043 2 true [REDUCE sym_declVar 5 0 147; SHIFT 3733];
   A 12046 2 true [REDUCE sym_declVar 6 0 94; SHIFT 3733];
   A 12049 2 true [REDUCE sym_declVar 5 0 152; SHIFT 3730];
   A 12052 2 true [REDUCE sym_declVar 5 0 66; SHIFT 3730];
   A 12055 2 true [REDUCE sym_declVar 5 0 153; SHIFT 3730];
   A 12058 2 true [REDUCE sym_declVar 5 0 154; SHIFT 3730];
   A 12061 2 true [REDUCE sym_declVar 5 0 155; SHIFT 3730];
   A 12064 2 true [REDUCE sym_declVar 6 0 94; SHIFT 3730];
   A 12067 2 true [REDUCE aux_sym_declVar_repeat2 2 0 55; SHIFT_REPEAT 3730];
   A 12070 2 true [REDUCE aux_sym_declVar_repeat2 2 0 55; SHIFT_REPEAT 3388];
   A 12073 2 true [REDUCE sym_declVar 6 0 197; SHIFT 3730];
   A 12076 2 true [REDUCE sym_declVar 6 0 95; SHIFT 3730];
   A 12079 2 true [REDUCE sym_declVar 6 0 198; SHIFT 3730];
   A 12082 2 true [REDUCE sym_declVar 6 0 124; SHIFT 3730];
   A 12085 2 true [REDUCE sym_declVar 6 0 132; SHIFT 3730];
   A 12088 2 true [REDUCE sym_declVar 4 0 94; SHIFT 3727];
   A 12091 2 true [REDUCE sym_declVar 6 0 199; SHIFT 3730];
   A 12094 2 true [REDUCE sym_declVar 4 0 95; SHIFT 3727];
   A 12097 2 true [REDUCE sym_declVar 6 0 200; SHIFT 3730];
   A 12100 2 true [REDUCE sym_declVar 6 0 201; SHIFT 3730];
   A 12103 2 true [REDUCE sym_declVar 6 0 197; SHIFT 3733]
  ].

Definition ts_parse_actions_12106 : list (Z * list TSParseActionEntry) :=
  [
   A 12106 2 true [REDUCE sym_declVar 6 0 203; SHIFT 3730];
   A 12109 2 true [REDUCE sym_declVar 6 0 204; SHIFT 3730];
   A 12112 2 true [REDUCE sym_declVar 6 0 205; SHIFT 3730];
   A 12115 2 true [REDUCE sym_declVar 6 0 206; SHIFT 3730];
   A 12118 2 true [REDUCE sym_declVar 7 0 239; SHIFT 3730];
   A 12121 2 true [REDUCE sym_declVar 7 0 240; SHIFT 3730];
   A 12124 2 true [REDUCE sym_declVar 7 0 66; SHIFT 3730];
   A 12127 2 true [REDUCE sym_declVar 7 0 238; SHIFT 3730];
   A 12130 2 true [REDUCE sym_declVar 7 0 153; SHIFT 3730];
   A 12133 2 true [REDUCE sym_declVar 5 0 150; SHIFT 3727];
   A 12136 2 true [REDUCE sym_declVar 7 0 241; SHIFT 3730];
   A 12139 2 true [REDUCE sym_declVar 7 0 242; SHIFT 3730];
   A 12142 2 true [REDUCE sym_declVar 7 0 243; SHIFT 3730];
   A 12145 2 true [REDUCE sym_declVar 7 0 244; SHIFT 3730];
   A 12148 2 true [REDUCE sym_declVar 5 0 147; SHIFT 3727];
   A 12151 2 true [REDUCE sym_declVar 5 0 151; SHIFT 3727];
   A 12154 2 true [REDUCE sym_declVar 5 0 152; SHIFT 3727];
   A 12157 2 true [REDUCE sym_declVar 5 0 66; SHIFT 3727];
   A 12160 2 true [REDUCE sym_declVar 5 0 153; SHIFT 3727];
   A 12163 2 true [REDUCE sym_declVar 5 0 154; SHIFT 3727];
   A 12166 2 true [REDUCE sym_declVar 5 0 155; SHIFT 3727];
   A 12169 2 true [REDUCE sym_declVar 7 0 245; SHIFT 3730];
   A 12172 2 true [REDUCE sym_declVar 7 0 154; SHIFT 3730];
   A 12175 2 true [REDUCE sym_declVar 7 0 246; SHIFT 3730];
   A 12178 2 true [REDUCE sym_declVar 7 0 155; SHIFT 3730];
   A 12181 2 true [REDUCE sym_declVar 7 0 247; SHIFT 3730];
   A 12184 2 true [REDUCE sym_declVar 6 0 94; SHIFT 3727];
   A 12187 2 true [REDUCE sym_declVar 8 0 273; SHIFT 3730];
   A 12190 2 true [REDUCE aux_sym_declVar_repeat2 2 0 55; SHIFT_REPEAT 3727];
   A 12193 2 true [REDUCE aux_sym_declVar_repeat2 2 0 55; SHIFT_REPEAT 3437];
   A 12196 2 true [REDUCE sym_declVar 6 0 197; SHIFT 3727];
   A 12199 2 true [REDUCE sym_declVar 8 0 274; SHIFT 3730];
   A 12202 2 true [REDUCE sym_declVar 8 0 201; SHIFT 3730];
   A 12205 2 true [REDUCE sym_declVar 8 0 275; SHIFT 3730];
   A 12208 2 true [REDUCE sym_declVar 8 0 202; SHIFT 3730];
   A 12211 2 true [REDUCE sym_declVar 8 0 276; SHIFT 3730];
   A 12214 2 true [REDUCE sym_declVar 6 0 95; SHIFT 3727];
   A 12217 2 true [REDUCE sym_declVar 8 0 277; SHIFT 3730];
   A 12220 2 true [REDUCE sym_declVar 6 0 198; SHIFT 3727];
   A 12223 2 true [REDUCE sym_declVar 8 0 278; SHIFT 3730];
   A 12226 2 true [REDUCE sym_declVar 6 0 124; SHIFT 3727];
   A 12229 2 true [REDUCE sym_declVar 6 0 132; SHIFT 3727];
   A 12232 2 true [REDUCE sym_declVar 6 0 199; SHIFT 3727];
   A 12235 2 true [REDUCE sym_declVar 6 0 200; SHIFT 3727];
   A 12238 2 true [REDUCE sym_declVar 6 0 201; SHIFT 3727];
   A 12241 2 true [REDUCE sym_declVar 6 0 202; SHIFT 3727];
   A 12244 2 true [REDUCE sym_declVar 6 0 203; SHIFT 3727];
   A 12247 2 true [REDUCE sym_declVar 6 0 204; SHIFT 3727];
   A 12250 2 true [REDUCE sym_declVar 6 0 205; SHIFT 3727];
   A 12253 2 true [REDUCE sym_declVar 7 0 247; SHIFT 3727];
   A 12256 2 true [REDUCE sym_declVar 7 0 239; SHIFT 3727];
   A 12259 2 true [REDUCE sym_declVar 7 0 240; SHIFT 3727];
   A 12262 2 true [REDUCE sym_declVar 9 0 294; SHIFT 3730];
   A 12265 2 true [REDUCE sym_declVar 7 0 66; SHIFT 3727];
   A 12268 2 true [REDUCE sym_declVar 7 0 238; SHIFT 3727];
   A 12271 2 true [REDUCE sym_declVar 7 0 153; SHIFT 3727];
   A 12274 2 true [REDUCE sym_declVar 7 0 241; SHIFT 3727];
   A 12277 2 true [REDUCE sym_declVar 9 0 295; SHIFT 3730];
   A 12280 2 true [REDUCE sym_declVar 7 0 242; SHIFT 3727];
   A 12283 2 true [REDUCE sym_declVar 7 0 243; SHIFT 3727];
   A 12286 2 true [REDUCE sym_declVar 7 0 244; SHIFT 3727];
   A 12289 2 true [REDUCE sym_declVar 7 0 245; SHIFT 3727];
   A 12292 2 true [REDUCE sym_declVar 7 0 154; SHIFT 3727];
   A 12295 2 true [REDUCE aux_sym_declVar_repeat2 2 0 55; SHIFT_REPEAT 3733];
   A 12298 2 true [REDUCE aux_sym_declVar_repeat2 2 0 55; SHIFT_REPEAT 3462];
   A 12301 2 true [REDUCE sym_declVar 7 0 246; SHIFT 3727];
   A 12304 2 true [REDUCE sym_declVar 7 0 155; SHIFT 3727];
   A 12307 2 true [REDUCE sym_declVar 6 0 202; SHIFT 3730];
   A 12310 2 true [REDUCE sym__declProc 8 0 219; SHIFT 4132];
   A 12313 2 true [REDUCE sym__declProc 6 0 124; SHIFT 4126];
   A 12316 2 true [REDUCE sym__declProc 6 0 125; SHIFT 4126];
   A 12319 2 true [REDUCE sym__declProc 6 0 129; SHIFT 4126];
   A 12322 2 true [REDUCE sym__declProc 6 0 130; SHIFT 4126];
   A 12325 2 true [REDUCE sym__declProc 7 0 165; SHIFT 4126];
   A 12328 2 true [REDUCE sym__declProc 7 0 166; SHIFT 4126];
   A 12331 2 true [REDUCE sym__declProc 7 0 167; SHIFT 4126];
   A 12334 2 true [REDUCE sym__declProc 7 0 168; SHIFT 4126];
   A 12337 2 true [REDUCE sym__declProc 7 0 169; SHIFT 4126];
   A 12340 2 true [REDUCE sym__declProc 7 0 170; SHIFT 4126];
   A 12343 2 true [REDUCE sym__declProc 7 0 171; SHIFT 4126];
   A 12346 2 true [REDUCE sym__declProc 7 0 172; SHIFT 4126];
   A 12349 2 true [REDUCE sym__declProc 7 0 180; SHIFT 4126];
   A 12352 2 true [REDUCE sym__declProc 7 0 185; SHIFT 4126];
   A 12355 2 true [REDUCE sym__declProc 7 0 186; SHIFT 4126];
   A 12358 2 true [REDUCE sym__declProc 8 0 218; SHIFT 4126];
   A 12361 2 true [REDUCE sym__declProc 8 0 219; SHIFT 4126];
   A 12364 2 true [REDUCE sym__declProc 8 0 220; SHIFT 4126];
   A 12367 2 true [REDUCE sym__declProc 8 0 221; SHIFT 4126];
   A 12370 2 true [REDUCE sym__declProc 8 0 222; SHIFT 4126];
   A 12373 2 true [REDUCE sym__declProc 8 0 223; SHIFT 4126];
   A 12376 2 true [REDUCE sym__declProc 8 0 224; SHIFT 4126];
   A 12379 2 true [REDUCE sym__declProc 8 0 232; SHIFT 4126];
   A 12382 2 true [REDUCE sym__declProc 9 0 261; SHIFT 4126];
   A 12385 2 true [REDUCE sym__declProc 9 0 262; SHIFT 4126];
   A 12388 2 true [REDUCE sym__declProc 9 0 263; SHIFT 4126];
   A 12391 2 true [REDUCE sym__declProc 9 0 264; SHIFT 4126];
   A 12394 2 true [REDUCE sym__declProc 10 0 290; SHIFT 4126];
   A 12397 2 true [REDUCE aux_sym__declProc_repeat1 2 0 55; SHIFT_REPEAT 4132];
   A 12400 2 true [REDUCE sym__declProc 3 0 11; SHIFT 4132];
   A 12403 2 true [REDUCE sym__declProc 4 0 24; SHIFT 4132];
   A 12406 2 true [REDUCE sym__declProc 4 0 27; SHIFT 4132];
   A 12409 2 true [REDUCE sym__declProc 4 0 31; SHIFT 4132];
   A 12412 2 true [REDUCE sym__declProc 4 0 32; SHIFT 4132];
   A 12415 2 true [REDUCE sym__declProc 5 0 56; SHIFT 4132];
   A 12418 2 true [REDUCE sym__declProc 5 0 57; SHIFT 4132];
   A 12421 2 true [REDUCE sym__declProc 5 0 58; SHIFT 4132];
   A 12424 2 true [REDUCE sym__declProc 5 0 59; SHIFT 4132];
   A 12427 2 true [REDUCE sym__declProc 5 0 66; SHIFT 4132];
   A 12430 2 true [REDUCE sym__declProc 5 0 68; SHIFT 4132];
   A 12433 2 true [REDUCE sym__declProc 5 0 70; SHIFT 4132];
   A 12436 2 true [REDUCE sym__declProc 5 0 71; SHIFT 4132];
   A 12439 2 true [REDUCE sym__declProc 6 0 110; SHIFT 4132];
   A 12442 2 true [REDUCE sym__declProc 6 0 111; SHIFT 4132];
   A 12445 2 true [REDUCE sym__declProc 6 0 112; SHIFT 4132];
   A 12448 2 true [REDUCE sym__declProc 6 0 113; SHIFT 4132];
   A 12451 2 true [REDUCE sym__declProc 6 0 114; SHIFT 4132];
   A 12454 2 true [REDUCE sym__declProc 6 0 115; SHIFT 4132];
   A 12457 2 true [REDUCE sym__declProc 6 0 116; SHIFT 4132];
   A 12460 2 true [REDUCE sym__declProc 6 0 124; SHIFT 4132];
   A 12463 2 true [REDUCE sym__declProc 6 0 125; SHIFT 4132];
   A 12466 2 true [REDUCE sym__declProc 6 0 129; SHIFT 4132];
   A 12469 2 true [REDUCE sym__declProc 6 0 130; SHIFT 4132];
   A 12472 2 true [REDUCE sym__declProc 7 0 165; SHIFT 4132];
   A 12475 2 true [REDUCE sym__declProc 7 0 166; SHIFT 4132];
   A 12478 2 true [REDUCE sym__declProc 7 0 167; SHIFT 4132];
   A 12481 2 true [REDUCE sym__declProc 7 0 168; SHIFT 4132];
   A 12484 2 true [REDUCE sym__declProc 7 0 169; SHIFT 4132];
   A 12487 2 true [REDUCE sym__declProc 7 0 170; SHIFT 4132];
   A 12490 2 true [REDUCE sym__declProc 7 0 171; SHIFT 4132];
   A 12493 2 true [REDUCE sym__declProc 7 0 172; SHIFT 4132];
   A 12496 2 true [REDUCE sym__declProc 7 0 180; SHIFT 4132];
   A 12499 2 true [REDUCE sym__declProc 7 0 185; SHIFT 4132];
   A 12502 2 true [REDUCE sym__declProc 7 0 186; SHIFT 4132];
   A 12505 2 true [REDUCE sym__declProc 8 0 218; SHIFT 4132];
   A 12508 2 true [REDUCE sym__declProc 8 0 220; SHIFT 4132];
   A 12511 2 true [REDUCE sym__declProc 8 0 221; SHIFT 4132];
   A 12514 2 true [REDUCE sym__declProc 8 0 222; SHIFT 4132];
   A 12517 2 true [REDUCE sym__declProc 8 0 223; SHIFT 4132];
   A 12520 2 true [REDUCE sym__declProc 8 0 224; SHIFT 4132];
   A 12523 2 true [REDUCE sym__declProc 8 0 232; SHIFT 4132];
   A 12526 2 true [REDUCE sym__declProc 9 0 261; SHIFT 4132];
   A 12529 2 true [REDUCE sym__declProc 9 0 262; SHIFT 4132];
   A 12532 2 true [REDUCE sym__declProc 9 0 263; SHIFT 4132];
   A 12535 2 true [REDUCE sym__declProc 9 0 264; SHIFT 4132];
   A 12538 2 true [REDUCE sym__declProc 10 0 290; SHIFT 4132];
   A 12541 2 true [REDUCE sym__declOperator 3 0 11; SHIFT 4126];
   A 12544 2 true [REDUCE sym__declOperator 4 0 26; SHIFT 4126];
   A 12547 2 true [REDUCE sym__declOperator 4 0 27; SHIFT 4126];
   A 12550 2 true [REDUCE sym__declOperator 4 0 31; SHIFT 4126];
   A 12553 2 true [REDUCE sym__declOperator 4 0 32; SHIFT 4126];
   A 12556 2 true [REDUCE sym__declOperator 4 0 24; SHIFT 4126];
   A 12559 2 true [REDUCE sym__declOperator 5 0 62; SHIFT 4126];
   A 12562 2 true [REDUCE sym__declOperator 5 0 63; SHIFT 4126];
   A 12565 2 true [REDUCE sym__declOperator 5 0 66; SHIFT 4126];
   A 12568 2 true [REDUCE sym__declOperator 5 0 68; SHIFT 4126];
   A 12571 2 true [REDUCE sym__declOperator 5 0 69; SHIFT 4126];
   A 12574 2 true [REDUCE sym__declOperator 5 0 70; SHIFT 4126];
   A 12577 2 true [REDUCE sym__declOperator 5 0 71; SHIFT 4126];
   A 12580 2 true [REDUCE sym__declOperator 5 0 91; SHIFT 4126];
   A 12583 2 true [REDUCE sym__declOperator 5 0 57; SHIFT 4126];
   A 12586 2 true [REDUCE sym__declOperator 5 0 58; SHIFT 4126];
   A 12589 2 true [REDUCE sym__declOperator 5 0 59; SHIFT 4126];
   A 12592 2 true [REDUCE sym__declOperator 6 0 119; SHIFT 4126];
   A 12595 2 true [REDUCE sym__declOperator 6 0 120; SHIFT 4126];
   A 12598 2 true [REDUCE sym__declOperator 6 0 124; SHIFT 4126];
   A 12601 2 true [REDUCE sym__declOperator 6 0 125; SHIFT 4126];
   A 12604 2 true [REDUCE sym__declOperator 6 0 127; SHIFT 4126];
   A 12607 2 true [REDUCE sym__declOperator 6 0 128; SHIFT 4126];
   A 12610 2 true [REDUCE sym__declOperator 6 0 129; SHIFT 4126];
   A 12613 2 true [REDUCE sym__declOperator 6 0 130; SHIFT 4126];
   A 12616 2 true [REDUCE sym__declOperator 6 0 144; SHIFT 4126];
   A 12619 2 true [REDUCE sym__declOperator 6 0 145; SHIFT 4126];
   A 12622 2 true [REDUCE sym__declOperator 6 0 113; SHIFT 4126];
   A 12625 2 true [REDUCE sym__declOperator 6 0 114; SHIFT 4126];
   A 12628 2 true [REDUCE sym__declOperator 6 0 146; SHIFT 4126];
   A 12631 2 true [REDUCE sym__declOperator 6 0 115; SHIFT 4126];
   A 12634 2 true [REDUCE sym__declOperator 6 0 116; SHIFT 4126];
   A 12637 2 true [REDUCE sym__declOperator 7 0 175; SHIFT 4126];
   A 12640 2 true [REDUCE sym__declOperator 7 0 176; SHIFT 4126];
   A 12643 2 true [REDUCE sym__declOperator 7 0 180; SHIFT 4126];
   A 12646 2 true [REDUCE sym__declOperator 7 0 183; SHIFT 4126];
   A 12649 2 true [REDUCE sym__declOperator 7 0 184; SHIFT 4126];
   A 12652 2 true [REDUCE sym__declOperator 7 0 185; SHIFT 4126];
   A 12655 2 true [REDUCE sym__declOperator 7 0 186; SHIFT 4126];
   A 12658 2 true [REDUCE sym__declOperator 7 0 193; SHIFT 4126];
   A 12661 2 true [REDUCE sym__declOperator 7 0 194; SHIFT 4126];
   A 12664 2 true [REDUCE sym__declOperator 7 0 169; SHIFT 4126];
   A 12667 2 true [REDUCE sym__declOperator 7 0 170; SHIFT 4126];
   A 12670 2 true [REDUCE sym__declOperator 7 0 195; SHIFT 4126];
   A 12673 2 true [REDUCE sym__declOperator 7 0 196; SHIFT 4126];
   A 12676 2 true [REDUCE sym__declOperator 7 0 171; SHIFT 4126];
   A 12679 2 true [REDUCE sym__declOperator 7 0 172; SHIFT 4126];
   A 12682 2 true [REDUCE sym__declProc 6 0 116; SHIFT 4126];
   A 12685 2 true [REDUCE sym__declOperator 8 0 230; SHIFT 4126];
   A 12688 2 true [REDUCE sym__declOperator 8 0 231; SHIFT 4126];
   A 12691 2 true [REDUCE sym__declOperator 8 0 232; SHIFT 4126];
   A 12694 2 true [REDUCE sym__declOperator 8 0 234; SHIFT 4126];
   A 12697 2 true [REDUCE sym__declOperator 8 0 235; SHIFT 4126];
   A 12700 2 true [REDUCE sym__declOperator 8 0 222; SHIFT 4126];
   A 12703 2 true [REDUCE sym__declOperator 8 0 236; SHIFT 4126];
   A 12706 2 true [REDUCE sym__declOperator 8 0 237; SHIFT 4126];
   A 12709 2 true [REDUCE sym__declOperator 8 0 223; SHIFT 4126];
   A 12712 2 true [REDUCE sym__declOperator 8 0 224; SHIFT 4126];
   A 12715 2 true [REDUCE sym__declOperator 9 0 268; SHIFT 4126];
   A 12718 2 true [REDUCE sym__declOperator 9 0 270; SHIFT 4126];
   A 12721 2 true [REDUCE sym__declOperator 9 0 271; SHIFT 4126];
   A 12724 2 true [REDUCE sym__declOperator 9 0 272; SHIFT 4126];
   A 12727 2 true [REDUCE sym__declOperator 9 0 264; SHIFT 4126];
   A 12730 2 true [REDUCE sym__declOperator 10 0 293; SHIFT 4126];
   A 12733 2 true [REDUCE sym__declOperator 3 0 11; SHIFT 4132];
   A 12736 2 true [REDUCE sym__declOperator 4 0 26; SHIFT 4132];
   A 12739 2 true [REDUCE sym__declOperator 4 0 27; SHIFT 4132];
   A 12742 2 true [REDUCE sym__declOperator 4 0 31; SHIFT 4132];
   A 12745 2 true [REDUCE sym__declOperator 4 0 32; SHIFT 4132];
   A 12748 2 true [REDUCE sym__declOperator 4 0 24; SHIFT 4132];
   A 12751 2 true [REDUCE sym__declOperator 5 0 62; SHIFT 4132];
   A 12754 2 true [REDUCE sym__declOperator 5 0 63; SHIFT 4132];
   A 12757 2 true [REDUCE sym__declOperator 5 0 66; SHIFT 4132];
   A 12760 2 true [REDUCE sym__declOperator 5 0 68; SHIFT 4132];
   A 12763 2 true [REDUCE sym__declOperator 5 0 69; SHIFT 4132];
   A 12766 2 true [REDUCE sym__declOperator 5 0 70; SHIFT 4132];
   A 12769 2 true [REDUCE sym__declOperator 5 0 71; SHIFT 4132];
   A 12772 2 true [REDUCE sym__declOperator 5 0 91; SHIFT 4132];
   A 12775 2 true [REDUCE sym__declOperator 5 0 57; SHIFT 4132];
   A 12778 2 true [REDUCE sym__declOperator 5 0 58; SHIFT 4132];
   A 12781 2 true [REDUCE sym__declOperator 5 0 59; SHIFT 4132];
   A 12784 2 true [REDUCE sym__declOperator 6 0 119; SHIFT 4132];
   A 12787 2 true [REDUCE sym__declOperator 6 0 120; SHIFT 4132];
   A 12790 2 true [REDUCE sym__declOperator 6 0 124; SHIFT 4132];
   A 12793 2 true [REDUCE sym__declOperator 6 0 125; SHIFT 4132];
   A 12796 2 true [REDUCE sym__declOperator 6 0 127; SHIFT 4132];
   A 12799 2 true [REDUCE sym__declOperator 6 0 128; SHIFT 4132];
   A 12802 2 true [REDUCE sym__declOperator 6 0 129; SHIFT 4132];
   A 12805 2 true [REDUCE sym__declOperator 6 0 130; SHIFT 4132];
   A 12808 2 true [REDUCE sym__declOperator 6 0 144; SHIFT 4132];
   A 12811 2 true [REDUCE sym__declOperator 6 0 145; SHIFT 4132];
   A 12814 2 true [REDUCE sym__declOperator 6 0 113; SHIFT 4132];
   A 12817 2 true [REDUCE sym__declOperator 6 0 114; SHIFT 4132];
   A 12820 2 true [REDUCE sym__declOperator 6 0 146; SHIFT 4132];
   A 12823 2 true [REDUCE sym__declOperator 6 0 115; SHIFT 4132];
   A 12826 2 true [REDUCE sym__declOperator 6 0 116; SHIFT 4132];
   A 12829 2 true [REDUCE sym__declOperator 7 0 175; SHIFT 4132];
   A 12832 2 true [REDUCE sym__declOperator 7 0 176; SHIFT 4132];
   A 12835 2 true [REDUCE sym__declOperator 7 0 180; SHIFT 4132];
   A 12838 2 true [REDUCE sym__declOperator 7 0 183; SHIFT 4132];
   A 12841 2 true [REDUCE sym__declOperator 7 0 184; SHIFT 4132];
   A 12844 2 true [REDUCE sym__declOperator 7 0 185; SHIFT 4132];
   A 12847 2 true [REDUCE sym__declOperator 7 0 186; SHIFT 4132];
   A 12850 2 true [REDUCE sym__declOperator 7 0 193; SHIFT 4132];
   A 12853 2 true [REDUCE sym__declOperator 7 0 194; SHIFT 4132];
   A 12856 2 true [REDUCE sym__declOperator 7 0 169; SHIFT 4132];
   A 12859 2 true [REDUCE sym__declOperator 7 0 170; SHIFT 4132];
   A 12862 2 true [REDUCE sym__declOperator 7 0 195; SHIFT 4132];
   A 12865 2 true [REDUCE sym__declOperator 7 0 196; SHIFT 4132];
   A 12868 2 true [REDUCE sym__declOperator 7 0 171; SHIFT 4132];
   A 12871 2 true [REDUCE sym__declOperator 7 0 172; SHIFT 4132];
   A 12874 2 true [REDUCE sym__declOperator 8 0 226; SHIFT 4132];
   A 12877 2 true [REDUCE sym__declOperator 8 0 230; SHIFT 4132];
   A 12880 2 true [REDUCE sym__declOperator 8 0 231; SHIFT 4132];
   A 12883 2 true [REDUCE sym__declOperator 8 0 232; SHIFT 4132];
   A 12886 2 true [REDUCE sym__declOperator 8 0 234; SHIFT 4132];
   A 12889 2 true [REDUCE sym__declOperator 8 0 235; SHIFT 4132];
   A 12892 2 true [REDUCE sym__declOperator 8 0 222; SHIFT 4132];
   A 12895 2 true [REDUCE sym__declOperator 8 0 236; SHIFT 4132];
   A 12898 2 true [REDUCE sym__declOperator 8 0 237; SHIFT 4132];
   A 12901 2 true [REDUCE sym__declOperator 8 0 223; SHIFT 4132];
   A 12904 2 true [REDUCE sym__declOperator 8 0 224; SHIFT 4132];
   A 12907 2 true [REDUCE sym__declOperator 9 0 268; SHIFT 4132];
   A 12910 2 true [REDUCE sym__declOperator 9 0 270; SHIFT 4132];
   A 12913 2 true [REDUCE sym__declOperator 9 0 271; SHIFT 4132];
   A 12916 2 true [REDUCE sym__declOperator 9 0 272; SHIFT 4132];
   A 12919 2 true [REDUCE sym__declOperator 9 0 264; SHIFT 4132];
   A 12922 2 true [REDUCE sym__declOperator 10 0 293; SHIFT 4132];
   A 12925 2 true [REDUCE sym__declProc 3 0 11; SHIFT 4126];
   A 12928 2 true [REDUCE sym__declProc 4 0 24; SHIFT 4126];
   A 12931 2 true [REDUCE sym__declProc 4 0 27; SHIFT 4126];
   A 12934 2 true [REDUCE sym__declProc 4 0 31; SHIFT 4126];
   A 12937 2 true [REDUCE sym__declProc 4 0 32; SHIFT 4126];
   A 12940 2 true [REDUCE sym__declProc 5 0 56; SHIFT 4126];
   A 12943 2 true [REDUCE sym__declProc 5 0 57; SHIFT 4126];
   A 12946 2 true [REDUCE sym__declProc 5 0 58; SHIFT 4126];
   A 12949 2 true [REDUCE sym__declProc 5 0 59; SHIFT 4126];
   A 12952 2 true [REDUCE aux_sym__declProc_repeat1 2 0 55; SHIFT_REPEAT 4126];
   A 12955 2 true [REDUCE sym__declProc 5 0 66; SHIFT 4126];
   A 12958 2 true [REDUCE sym__declProc 5 0 68; SHIFT 4126];
   A 12961 2 true [REDUCE sym__declProc 5 0 70; SHIFT 4126];
   A 12964 2 true [REDUCE sym__declProc 5 0 71; SHIFT 4126];
   A 12967 2 true [REDUCE sym__declProc 6 0 110; SHIFT 4126];
   A 12970 2 true [REDUCE sym__declProc 6 0 111; SHIFT 4126];
   A 12973 2 true [REDUCE sym__declProc 6 0 112; SHIFT 4126];
   A 12976 2 true [REDUCE sym__declProc 6 0 113; SHIFT 4126];
   A 12979 2 true [REDUCE sym__declProc 6 0 114; SHIFT 4126];
   A 12982 2 true [REDUCE sym__declProc 6 0 115; SHIFT 4126];
   A 12985 2 true [REDUCE sym__declOperator 8 0 226; SHIFT 4126];
   A 12988 2 true [REDUCE sym_declConst 4 0 33; SHIFT 3725];
   A 12991 2 true [REDUCE aux_sym_declProcFwd_repeat1 2 0 55; SHIFT_REPEAT 3725];
   A 12994 2 true [REDUCE sym_declConst 5 0 147; SHIFT 3725];
   A 12997 2 true [REDUCE sym_declConst 5 0 148; SHIFT 3725];
   A 13000 2 true [REDUCE sym_declType 5 0 66; SHIFT 3725];
   A 13003 2 true [REDUCE sym_declType 5 0 158; SHIFT 3725];
   A 13006 2 true [REDUCE sym_declType 5 0 150; SHIFT 3725];
   A 13009 2 true [REDUCE sym_declConst 6 0 197; SHIFT 3725];
   A 13012 2 true [REDUCE sym_declConst 6 0 132; SHIFT 3725];
   A 13015 2 true [REDUCE sym_declType 6 0 207; SHIFT 3725];
   A 13018 2 true [REDUCE sym_declType 6 0 124; SHIFT 3725];
   A 13021 2 true [REDUCE sym_declType 6 0 211; SHIFT 3725];
   A 13024 2 true [REDUCE sym_declType 6 0 113; SHIFT 3725];
   A 13027 2 true [REDUCE sym_declConst 7 0 238; SHIFT 3725];
   A 13030 2 true [REDUCE sym_declType 7 0 248; SHIFT 3725];
   A 13033 2 true [REDUCE sym_declType 7 0 254; SHIFT 3725];
   A 13036 2 true [REDUCE sym_declType 7 0 169; SHIFT 3725];
   A 13039 2 true [REDUCE sym_declType 8 0 284; SHIFT 3725];
   A 13042 2 true [REDUCE sym_declConst 5 0 148; SHIFT 3723];
   A 13045 2 true [REDUCE sym_declConst 6 0 197; SHIFT 3723];
   A 13048 2 true [REDUCE sym_declConst 6 0 132; SHIFT 3723];
   A 13051 2 true [REDUCE sym_declType 5 0 66; SHIFT 3723];
   A 13054 2 true [REDUCE sym_declConst 7 0 238; SHIFT 3723];
   A 13057 2 true [REDUCE sym_declType 5 0 158; SHIFT 3723];
   A 13060 2 true [REDUCE sym_declConst 3 0 46; SHIFT 3718];
   A 13063 2 true [REDUCE sym_declType 7 0 248; SHIFT 3723];
   A 13066 2 true [REDUCE sym_declConst 4 0 92; SHIFT 3718];
   A 13069 2 true [REDUCE sym_declConst 4 0 33; SHIFT 3718];
   A 13072 2 true [REDUCE sym_declType 4 0 94; SHIFT 3723];
   A 13075 2 true [REDUCE sym_declType 7 0 254; SHIFT 3723];
   A 13078 2 true [REDUCE sym_declType 7 0 169; SHIFT 3723];
   A 13081 2 true [REDUCE sym_declType 6 0 207; SHIFT 3723];
   A 13084 2 true [REDUCE sym_declType 6 0 124; SHIFT 3723];
   A 13087 2 true [REDUCE sym_declType 6 0 211; SHIFT 3723];
   A 13090 2 true [REDUCE sym_declType 6 0 113; SHIFT 3723];
   A 13093 2 true [REDUCE sym_declType 8 0 284; SHIFT 3723];
   A 13096 2 true [REDUCE sym_declType 5 0 150; SHIFT 3723];
   A 13099 2 true [REDUCE sym_declConst 5 0 147; SHIFT 3718];
   A 13102 2 true [REDUCE sym_declConst 5 0 148; SHIFT 3718];
   A 13105 2 true [REDUCE sym_declType 5 0 66; SHIFT 3718];
   A 13108 2 true [REDUCE sym_declType 5 0 158; SHIFT 3718];
   A 13111 2 true [REDUCE sym_declType 5 0 150; SHIFT 3718];
   A 13114 2 true [REDUCE sym_declConst 3 0 46; SHIFT 3725];
   A 13117 2 true [REDUCE sym_declConst 5 0 147; SHIFT 3723];
   A 13120 2 true [REDUCE sym_declConst 4 0 92; SHIFT 3725];
   A 13123 2 true [REDUCE sym_declConst 6 0 197; SHIFT 3718];
   A 13126 2 true [REDUCE sym_declConst 6 0 132; SHIFT 3718];
   A 13129 2 true [REDUCE sym_declType 6 0 207; SHIFT 3718];
   A 13132 2 true [REDUCE sym_declType 6 0 124; SHIFT 3718];
   A 13135 2 true [REDUCE sym_declType 6 0 211; SHIFT 3718];
   A 13138 2 true [REDUCE sym_declType 6 0 113; SHIFT 3718];
   A 13141 2 true [REDUCE sym_declType 4 0 94; SHIFT 3725];
   A 13144 2 true [REDUCE sym_declConst 7 0 238; SHIFT 3718];
   A 13147 2 true [REDUCE sym_declType 7 0 248; SHIFT 3718];
   A 13150 2 true [REDUCE sym_declType 7 0 254; SHIFT 3718];
   A 13153 2 true [REDUCE sym_declType 7 0 169; SHIFT 3718];
   A 13156 2 true [REDUCE sym_declType 8 0 284; SHIFT 3718];
   A 13159 2 true [REDUCE sym_declConst 3 0 46; SHIFT 3723];
   A 13162 2 true [REDUCE aux_sym_declProcFwd_repeat1 2 0 55; SHIFT_REPEAT 3718];
   A 13165 2 true [REDUCE sym_declConst 4 0 92; SHIFT 3723];
   A 13168 2 true [REDUCE sym_declConst 4 0 33; SHIFT 3723];
   A 13171 2 true [REDUCE aux_sym_declProcFwd_repeat1 2 0 55; SHIFT_REPEAT 3723];
   A 13174 2 true [REDUCE sym_declType 4 0 94; SHIFT 3718];
   A 13177 2 true [REDUCE sym__declProc 6 0 124; SHIFT 4104];
   A 13180 2 true [REDUCE sym_declProp 9 0 301; SHIFT 3700];
   A 13183 2 true [REDUCE sym_declProp 9 0 262; SHIFT 3700];
   A 13186 2 true [REDUCE sym_declProp 9 0 302; SHIFT 3700];
   A 13189 2 true [REDUCE sym_declProp 10 0 305; SHIFT 3700]; A 13192 1 true [SHIFT 13757];
   A 13194 1 true [SHIFT 13758]; A 13196 2 true [REDUCE sym_declVars 1 0 0; SHIFT 13758];
   A 13199 2 true [REDUCE sym__declProc 9 0 262; SHIFT 4104];
   A 13202 2 true [REDUCE sym_declVars 2 0 0; SHIFT 13758];
   A 13205 2 true [REDUCE sym__declProc 9 0 263; SHIFT 4104];
   A 13208 2 true [REDUCE sym__declProc 7 0 169; SHIFT 4104];
   A 13211 2 true [REDUCE sym_declVars 3 0 0; SHIFT 13758];
   A 13214 2 true [REDUCE sym__declProc 9 0 264; SHIFT 4104];
   A 13217 2 true [REDUCE aux_sym_declVars_repeat1 2 0 0; SHIFT_REPEAT 13757];
   A 13220 2 true [REDUCE aux_sym_declVars_repeat1 2 0 0; SHIFT_REPEAT 13758];
   A 13223 2 true [REDUCE sym__declProc 7 0 170; SHIFT 4104];
   A 13226 2 true [REDUCE sym__declProc 7 0 171; SHIFT 4104];
   A 13229 2 true [REDUCE sym__declProc 7 0 172; SHIFT 4104]; A 13232 1 true [SHIFT 13948];
   A 13234 1 true [SHIFT 13237]; A 13236 2 true [REDUCE sym_declVars 1 0 0; SHIFT 13237];
   A 13239 2 true [REDUCE sym_declProp 8 0 218; SHIFT 3712];
   A 13242 2 true [REDUCE sym_declProp 8 0 288; SHIFT 3712];
   A 13245 2 true [REDUCE sym__declProc 5 0 56; SHIFT 4104];
   A 13248 2 true [REDUCE sym_declProp 8 0 220; SHIFT 3712];
   A 13251 2 true [REDUCE sym_declProp 8 0 289; SHIFT 3712];
   A 13254 2 true [REDUCE sym_declProp 9 0 300; SHIFT 3712];
   A 13257 2 true [REDUCE sym_declProp 9 0 301; SHIFT 3712];
   A 13260 2 true [REDUCE sym_declProp 9 0 262; SHIFT 3712];
   A 13263 2 true [REDUCE sym__declProc 5 0 57; SHIFT 4104];
   A 13266 2 true [REDUCE sym__declProc 5 0 58; SHIFT 4104];
   A 13269 2 true [REDUCE sym__declProc 5 0 59; SHIFT 4104];
   A 13272 2 true [REDUCE sym__declProc 7 0 180; SHIFT 4104];
   A 13275 2 true [REDUCE sym__declProc 7 0 185; SHIFT 4104];
   A 13278 2 true [REDUCE sym__declProc 7 0 186; SHIFT 4104];
   A 13281 2 true [REDUCE sym__declProc 10 0 290; SHIFT 4104];
   A 13284 2 true [REDUCE sym_declProp 9 0 302; SHIFT 3712];
   A 13287 2 true [REDUCE sym_declProp 10 0 305; SHIFT 3712]; A 13290 1 true [SHIFT 13726];
   A 13292 1 true [SHIFT 13727]; A 13294 2 true [REDUCE sym_declVars 1 0 0; SHIFT 13727];
   A 13297 2 true [REDUCE sym_declVars 2 0 0; SHIFT 13727];
   A 13300 2 true [REDUCE sym__declProc 3 0 11; SHIFT 4104];
   A 13303 2 true [REDUCE sym_declProp 6 0 113; SHIFT 3712];
   A 13306 2 true [REDUCE sym_declProp 6 0 115; SHIFT 3712];
   A 13309 2 true [REDUCE sym_declProp 6 0 212; SHIFT 3712];
   A 13312 2 true [REDUCE sym_declProp 6 0 213; SHIFT 3712];
   A 13315 2 true [REDUCE sym_declProp 6 0 124; SHIFT 3712];
   A 13318 2 true [REDUCE sym_declProp 6 0 214; SHIFT 3712];
   A 13321 2 true [REDUCE sym_declProp 6 0 129; SHIFT 3712];
   A 13324 2 true [REDUCE sym_declProp 6 0 215; SHIFT 3712];
   A 13327 2 true [REDUCE sym_declProp 6 0 110; SHIFT 3712];
   A 13330 2 true [REDUCE sym_declProp 6 0 112; SHIFT 3712];
   A 13333 2 true [REDUCE sym_declProp 6 0 216; SHIFT 3712];
   A 13336 2 true [REDUCE sym_declProp 4 0 105; SHIFT 3712];
   A 13339 2 true [REDUCE aux_sym_declVars_repeat1 2 0 0; SHIFT_REPEAT 13948];
   A 13342 2 true [REDUCE aux_sym_declVars_repeat1 2 0 0; SHIFT_REPEAT 13237];
   A 13345 1 true [REDUCE sym_declClass 4 0 0]; A 13347 1 true [SHIFT 3966];
   A 13349 1 false [SHIFT 10641]; A 13351 1 true [SHIFT 799]; A 13353 1 false [SHIFT 5165];
   A 13355 1 true [SHIFT 5165]; A 13357 1 true [SHIFT 5174]; A 13359 1 true [SHIFT 5153];
   A 13361 1 false [SHIFT 5153]; A 13363 1 true [SHIFT 3645]; A 13365 1 true [SHIFT 13044];
   A 13367 1 true [SHIFT 11991]; A 13369 1 true [SHIFT 8368]; A 13371 1 true [SHIFT 6354];
   A 13373 1 true [SHIFT 11507]; A 13375 1 true [SHIFT 5163]; A 13377 1 true [SHIFT 10779];
   A 13379 1 true [SHIFT 10873]; A 13381 1 true [SHIFT 7898]; A 13383 1 true [SHIFT 12073];
   A 13385 1 true [SHIFT 15097]; A 13387 1 true [SHIFT 5172]; A 13389 1 true [SHIFT 14854];
   A 13391 1 true [SHIFT 15480]; A 13393 1 true [SHIFT 1533]; A 13395 1 true [SHIFT 7337];
   A 13397 2 true [REDUCE sym__declProc 4 0 27; SHIFT 4104];
   A 13400 2 true [REDUCE sym__declProc 4 0 31; SHIFT 4104];
   A 13403 2 true [REDUCE sym__declProc 4 0 32; SHIFT 4104];
   A 13406 2 true [REDUCE sym_declVars 3 0 0; SHIFT 13727];
   A 13409 2 true [REDUCE aux_sym_declVars_repeat1 2 0 0; SHIFT_REPEAT 13726];
   A 13412 2 true [REDUCE aux_sym_declVars_repeat1 2 0 0; SHIFT_REPEAT 13727];
   A 13415 1 true [REDUCE sym_declClass 5 0 0]; A 13417 1 false [SHIFT 10615];
   A 13419 1 true [SHIFT 14379]; A 13421 2 true [REDUCE sym_declProp 3 0 11; SHIFT 3700];
   A 13424 2 true [REDUCE sym_declVars 3 0 0; SHIFT 13237];
   A 13427 2 true [REDUCE sym_declProp 4 0 24; SHIFT 3700];
   A 13430 2 true [REDUCE sym_declProp 4 0 27; SHIFT 3700];
   A 13433 2 true [REDUCE sym_declProp 4 0 32; SHIFT 3700];
   A 13436 2 true [REDUCE aux_sym_declProcFwd_repeat1 2 0 55; SHIFT_REPEAT 3700];
   A 13439 2 true [REDUCE sym_declProp 4 0 105; SHIFT 3700];
   A 13442 2 true [REDUCE sym__declProc 5 0 66; SHIFT 4104];
   A 13445 2 true [REDUCE sym__declProc 5 0 68; SHIFT 4104];
   A 13448 2 true [REDUCE sym_declProcFwd 2 0 1; SHIFT 3694];
   A 13451 2 true [REDUCE sym_declProp 5 0 57; SHIFT 3700];
   A 13454 2 true [REDUCE sym__declProc 5 0 70; SHIFT 4104];
   A 13457 2 true [REDUCE sym__declProc 5 0 71; SHIFT 4104];
   A 13460 2 true [REDUCE sym_declProcFwd 3 0 1; SHIFT 3694];
   A 13463 2 true [REDUCE sym_declProcFwd 3 0 23; SHIFT 3694];
   A 13466 2 true [REDUCE sym_declProp 8 0 286; SHIFT 3712];
   A 13469 2 true [REDUCE sym__declProc 6 0 125; SHIFT 4104];
   A 13472 2 true [REDUCE sym__declProc 6 0 129; SHIFT 4104];
   A 13475 2 true [REDUCE sym_declProp 5 0 59; SHIFT 3700];
   A 13478 2 true [REDUCE sym_declProcFwd 4 0 52; SHIFT 3694];
   A 13481 2 true [REDUCE sym__declProc 6 0 130; SHIFT 4104];
   A 13484 2 true [REDUCE sym_declProp 5 0 160; SHIFT 3700];
   A 13487 2 true [REDUCE sym_declProp 5 0 66; SHIFT 3700];
   A 13490 2 true [REDUCE sym_declProp 5 0 70; SHIFT 3700];
   A 13493 2 true [REDUCE sym_declProp 5 0 162; SHIFT 3700];
   A 13496 2 true [REDUCE sym__declProc 8 0 218; SHIFT 4104];
   A 13499 2 true [REDUCE sym__declProc 8 0 219; SHIFT 4104];
   A 13502 2 true [REDUCE sym__declProc 8 0 220; SHIFT 4104];
   A 13505 2 true [REDUCE sym__declProc 8 0 221; SHIFT 4104];
   A 13508 2 true [REDUCE sym_declProp 5 0 163; SHIFT 3700];
   A 13511 2 true [REDUCE sym_declProp 5 0 56; SHIFT 3700];
   A 13514 2 true [REDUCE sym_declProp 6 0 113; SHIFT 3700];
   A 13517 2 true [REDUCE sym_declProp 6 0 115; SHIFT 3700];
   A 13520 2 true [REDUCE sym_declProp 8 0 287; SHIFT 3712];
   A 13523 2 true [REDUCE sym_declProp 6 0 213; SHIFT 3700];
   A 13526 2 true [REDUCE sym_declProp 6 0 124; SHIFT 3700];
   A 13529 2 true [REDUCE sym_declProp 6 0 214; SHIFT 3700];
   A 13532 2 true [REDUCE sym_declVars 2 0 0; SHIFT 13237];
   A 13535 2 true [REDUCE sym_declProp 6 0 129; SHIFT 3700];
   A 13538 2 true [REDUCE sym_declProp 6 0 215; SHIFT 3700];
   A 13541 2 true [REDUCE sym_declProp 6 0 110; SHIFT 3700];
   A 13544 2 true [REDUCE sym_declProp 6 0 112; SHIFT 3700];
   A 13547 2 true [REDUCE sym_declProp 6 0 216; SHIFT 3700];
   A 13550 2 true [REDUCE sym__declProc 9 0 261; SHIFT 4104];
   A 13553 2 true [REDUCE aux_sym_declProcFwd_repeat1 2 0 55; SHIFT_REPEAT 3694];
   A 13556 2 true [REDUCE sym__declProc 7 0 165; SHIFT 4104];
   A 13559 2 true [REDUCE sym__declProc 7 0 166; SHIFT 4104];
   A 13562 2 true [REDUCE sym__declProc 7 0 167; SHIFT 4104];
   A 13565 2 true [REDUCE sym_declProp 7 0 169; SHIFT 3700];
   A 13568 2 true [REDUCE sym_declProp 5 0 57; SHIFT 3712];
   A 13571 2 true [REDUCE sym__declProc 8 0 222; SHIFT 4104];
   A 13574 2 true [REDUCE sym_declProp 5 0 59; SHIFT 3712];
   A 13577 2 true [REDUCE sym_declProp 5 0 160; SHIFT 3712];
   A 13580 2 true [REDUCE sym_declProp 7 0 255; SHIFT 3700];
   A 13583 2 true [REDUCE sym_declProp 4 0 32; SHIFT 3712];
   A 13586 2 true [REDUCE sym_declProp 5 0 66; SHIFT 3712];
   A 13589 2 true [REDUCE sym_declProp 7 0 171; SHIFT 3700];
   A 13592 2 true [REDUCE sym_declProp 7 0 256; SHIFT 3700];
   A 13595 2 true [REDUCE sym_declProp 3 0 11; SHIFT 3712];
   A 13598 2 true [REDUCE sym__declProc 6 0 110; SHIFT 4104];
   A 13601 2 true [REDUCE sym__declProc 6 0 111; SHIFT 4104];
   A 13604 2 true [REDUCE sym__declProc 6 0 112; SHIFT 4104];
   A 13607 2 true [REDUCE sym__declProc 6 0 113; SHIFT 4104];
   A 13610 2 true [REDUCE sym__declProc 6 0 114; SHIFT 4104];
   A 13613 2 true [REDUCE sym_declProp 7 0 257; SHIFT 3700];
   A 13616 2 true [REDUCE sym_declProp 7 0 185; SHIFT 3700];
   A 13619 2 true [REDUCE sym_declProp 7 0 258; SHIFT 3700];
   A 13622 2 true [REDUCE sym_declProp 7 0 165; SHIFT 3700];
   A 13625 2 true [REDUCE sym_declProp 5 0 70; SHIFT 3712];
   A 13628 2 true [REDUCE sym_declProp 5 0 162; SHIFT 3712];
   A 13631 2 true [REDUCE sym_declProp 5 0 163; SHIFT 3712];
   A 13634 2 true [REDUCE sym_declProp 5 0 56; SHIFT 3712];
   A 13637 2 true [REDUCE sym__declProc 7 0 168; SHIFT 4104];
   A 13640 2 true [REDUCE sym_declProp 7 0 167; SHIFT 3700];
   A 13643 2 true [REDUCE sym__declProc 8 0 223; SHIFT 4104];
   A 13646 2 true [REDUCE sym__declProc 8 0 224; SHIFT 4104];
   A 13649 2 true [REDUCE aux_sym_declProcFwd_repeat1 2 0 55; SHIFT_REPEAT 3712];
   A 13652 2 true [REDUCE sym_declProp 7 0 259; SHIFT 3700];
   A 13655 2 true [REDUCE aux_sym__declProc_repeat1 2 0 55; SHIFT_REPEAT 4104];
   A 13658 2 true [REDUCE sym__declProc 6 0 115; SHIFT 4104];
   A 13661 2 true [REDUCE sym__declProc 6 0 116; SHIFT 4104];
   A 13664 2 true [REDUCE sym_declProp 7 0 260; SHIFT 3700];
   A 13667 2 true [REDUCE sym_declProp 8 0 285; SHIFT 3700];
   A 13670 2 true [REDUCE sym_declProp 8 0 223; SHIFT 3700];
   A 13673 2 true [REDUCE sym_declProp 7 0 169; SHIFT 3712];
   A 13676 2 true [REDUCE sym_declProp 7 0 255; SHIFT 3712];
   A 13679 2 true [REDUCE sym_declProp 7 0 171; SHIFT 3712];
   A 13682 2 true [REDUCE sym_declProp 7 0 256; SHIFT 3712];
   A 13685 2 true [REDUCE sym_declProp 7 0 257; SHIFT 3712];
   A 13688 2 true [REDUCE sym_declProp 8 0 286; SHIFT 3700];
   A 13691 2 true [REDUCE sym_declProp 7 0 185; SHIFT 3712];
   A 13694 2 true [REDUCE sym_declProcFwd 2 0 1; SHIFT 3700];
   A 13697 2 true [REDUCE sym_declProp 7 0 258; SHIFT 3712];
   A 13700 2 true [REDUCE sym_declProcFwd 3 0 1; SHIFT 3700];
   A 13703 2 true [REDUCE sym_declProcFwd 3 0 23; SHIFT 3700];
   A 13706 2 true [REDUCE sym_declProp 7 0 165; SHIFT 3712];
   A 13709 2 true [REDUCE sym_declProp 8 0 287; SHIFT 3700];
   A 13712 2 true [REDUCE sym_declProp 7 0 167; SHIFT 3712];
   A 13715 2 true [REDUCE sym_declProp 7 0 259; SHIFT 3712];
   A 13718 2 true [REDUCE sym_declProp 7 0 260; SHIFT 3712];
   A 13721 2 true [REDUCE sym_declProcFwd 4 0 52; SHIFT 3700];
   A 13724 2 true [REDUCE sym_declProp 8 0 218; SHIFT 3700];
   A 13727 2 true [REDUCE sym__declProc 8 0 232; SHIFT 4104];
   A 13730 2 true [REDUCE sym_declProp 8 0 288; SHIFT 3700];
   A 13733 2 true [REDUCE sym_declProp 8 0 220; SHIFT 3700];
   A 13736 2 true [REDUCE sym_declProp 8 0 289; SHIFT 3700];
   A 13739 2 true [REDUCE sym__declProc 4 0 24; SHIFT 4104];
   A 13742 2 true [REDUCE sym_declProp 9 0 300; SHIFT 3700];
   A 13745 2 true [REDUCE sym_declProp 8 0 285; SHIFT 3712];
   A 13748 2 true [REDUCE sym_declProp 8 0 223; SHIFT 3712];
   A 13751 2 true [REDUCE sym_declProp 4 0 24; SHIFT 3712];
   A 13754 2 true [REDUCE sym_declProp 4 0 27; SHIFT 3712];
   A 13757 2 true [REDUCE sym_declProp 6 0 212; SHIFT 3700];
   A 13760 2 true [REDUCE sym_declVar 6 0 95; SHIFT 3721]; A 13763 1 true [SHIFT 3467];
   A 13765 2 true [REDUCE sym_declVar 6 0 198; SHIFT 3721];
   A 13768 2 true [REDUCE sym_declVar 6 0 124; SHIFT 3721];
   A 13771 2 true [REDUCE sym_declVar 6 0 132; SHIFT 3721];
   A 13774 2 true [REDUCE sym_declVar 6 0 199; SHIFT 3721];
   A 13777 2 true [REDUCE sym_declVar 6 0 200; SHIFT 3721];
   A 13780 2 true [REDUCE sym_declVar 6 0 201; SHIFT 3721];
   A 13783 2 true [REDUCE sym_declVar 6 0 202; SHIFT 3721];
   A 13786 2 true [REDUCE sym_declVar 6 0 203; SHIFT 3721];
   A 13789 2 true [REDUCE sym_declVar 6 0 204; SHIFT 3721];
   A 13792 2 true [REDUCE sym_declVar 6 0 205; SHIFT 3721];
   A 13795 2 true [REDUCE sym_declVar 6 0 206; SHIFT 3721];
   A 13798 2 true [REDUCE sym_declVar 7 0 246; SHIFT 3707]; A 13801 1 true [SHIFT 3443];
   A 13803 2 true [REDUCE sym_declVar 7 0 155; SHIFT 3707];
   A 13806 2 true [REDUCE sym_declVar 7 0 247; SHIFT 3707];
   A 13809 2 true [REDUCE sym_declVar 4 0 94; SHIFT 3707];
   A 13812 2 true [REDUCE sym_declVar 4 0 95; SHIFT 3707];
   A 13815 2 true [REDUCE sym_declVar 7 0 239; SHIFT 3721];
   A 13818 2 true [REDUCE sym_declVar 7 0 240; SHIFT 3721];
   A 13821 2 true [REDUCE sym_declVar 7 0 66; SHIFT 3721];
   A 13824 2 true [REDUCE sym_declVar 7 0 238; SHIFT 3721];
   A 13827 2 true [REDUCE sym_declVar 7 0 153; SHIFT 3721];
   A 13830 2 true [REDUCE sym_declVar 7 0 241; SHIFT 3721];
   A 13833 2 true [REDUCE sym_declVar 7 0 242; SHIFT 3721];
   A 13836 2 true [REDUCE sym_declVar 7 0 243; SHIFT 3721];
   A 13839 2 true [REDUCE sym_declVar 7 0 244; SHIFT 3721];
   A 13842 2 true [REDUCE sym_declVar 7 0 245; SHIFT 3721];
   A 13845 2 true [REDUCE sym_declVar 7 0 154; SHIFT 3721];
   A 13848 2 true [REDUCE sym_declVar 7 0 246; SHIFT 3721];
   A 13851 2 true [REDUCE sym_declVar 7 0 155; SHIFT 3721];
   A 13854 2 true [REDUCE sym_declVar 7 0 247; SHIFT 3721];
   A 13857 2 true [REDUCE sym_declVar 7 0 155; SHIFT 3632]; A 13860 1 true [SHIFT 3389];
   A 13862 2 true [REDUCE sym_declVar 8 0 273; SHIFT 3721];
   A 13865 2 true [REDUCE sym_declVar 8 0 274; SHIFT 3721];
   A 13868 2 true [REDUCE sym_declVar 8 0 201; SHIFT 3721];
   A 13871 2 true [REDUCE sym_declVar 8 0 275; SHIFT 3721];
   A 13874 2 true [REDUCE sym_declVar 8 0 202; SHIFT 3721];
   A 13877 2 true [REDUCE sym_declVar 8 0 276; SHIFT 3721];
   A 13880 2 true [REDUCE sym_declVar 8 0 277; SHIFT 3721];
   A 13883 2 true [REDUCE sym_declVar 8 0 278; SHIFT 3721];
   A 13886 2 true [REDUCE sym_declVar 8 0 273; SHIFT 3707];
   A 13889 2 true [REDUCE sym_declVar 9 0 294; SHIFT 3721];
   A 13892 2 true [REDUCE sym_declVar 9 0 295; SHIFT 3721];
   A 13895 2 true [REDUCE sym_declVar 8 0 274; SHIFT 3707];
   A 13898 2 true [REDUCE sym_declVar 8 0 201; SHIFT 3707];
   A 13901 2 true [REDUCE sym_declVar 8 0 275; SHIFT 3707];
   A 13904 2 true [REDUCE sym_declVar 8 0 202; SHIFT 3707];
   A 13907 2 true [REDUCE sym_declVar 8 0 276; SHIFT 3707];
   A 13910 2 true [REDUCE sym_declVar 8 0 277; SHIFT 3707];
   A 13913 2 true [REDUCE sym_declVar 8 0 278; SHIFT 3707];
   A 13916 2 true [REDUCE sym_declVar 4 0 94; SHIFT 3632];
   A 13919 2 true [REDUCE sym_declVar 4 0 95; SHIFT 3632];
   A 13922 2 true [REDUCE sym_declVar 5 0 150; SHIFT 3707];
   A 13925 2 true [REDUCE sym_declVar 5 0 147; SHIFT 3707];
   A 13928 2 true [REDUCE sym_declVar 5 0 151; SHIFT 3707];
   A 13931 2 true [REDUCE sym_declVar 5 0 150; SHIFT 3632];
   A 13934 2 true [REDUCE sym_declVar 5 0 147; SHIFT 3632];
   A 13937 2 true [REDUCE sym_declVar 5 0 151; SHIFT 3632];
   A 13940 2 true [REDUCE sym_declVar 5 0 152; SHIFT 3632];
   A 13943 2 true [REDUCE sym_declVar 5 0 66; SHIFT 3632];
   A 13946 2 true [REDUCE sym_declVar 5 0 153; SHIFT 3632];
   A 13949 2 true [REDUCE sym_declVar 5 0 154; SHIFT 3632];
   A 13952 2 true [REDUCE sym_declVar 5 0 155; SHIFT 3632];
   A 13955 2 true [REDUCE sym_declVar 5 0 152; SHIFT 3707];
   A 13958 2 true [REDUCE sym_declVar 9 0 294; SHIFT 3707];
   A 13961 2 true [REDUCE sym_declVar 9 0 295; SHIFT 3707];
   A 13964 2 true [REDUCE sym_declVar 5 0 66; SHIFT 3707];
   A 13967 2 true [REDUCE sym_declVar 5 0 153; SHIFT 3707];
   A 13970 2 true [REDUCE sym_declVar 5 0 154; SHIFT 3707];
   A 13973 2 true [REDUCE sym_declVar 5 0 155; SHIFT 3707];
   A 13976 2 true [REDUCE sym_declVar 7 0 243; SHIFT 3632];
   A 13979 2 true [REDUCE sym_declVar 7 0 244; SHIFT 3632];
   A 13982 2 true [REDUCE sym_declVar 7 0 247; SHIFT 3632];
   A 13985 2 true [REDUCE sym_declVar 7 0 245; SHIFT 3632];
   A 13988 2 true [REDUCE sym_declVar 6 0 94; SHIFT 3707];
   A 13991 2 true [REDUCE sym_declVar 7 0 154; SHIFT 3707];
   A 13994 2 true [REDUCE sym_declVar 6 0 197; SHIFT 3707];
   A 13997 2 true [REDUCE sym_declVar 6 0 95; SHIFT 3707];
   A 14000 2 true [REDUCE sym_declVar 6 0 198; SHIFT 3707];
   A 14003 2 true [REDUCE sym_declVar 6 0 124; SHIFT 3707];
   A 14006 2 true [REDUCE sym_declVar 8 0 273; SHIFT 3632];
   A 14009 2 true [REDUCE sym_declVar 8 0 274; SHIFT 3632];
   A 14012 2 true [REDUCE sym_declVar 8 0 201; SHIFT 3632];
   A 14015 2 true [REDUCE sym_declVar 8 0 275; SHIFT 3632];
   A 14018 2 true [REDUCE sym_declVar 8 0 202; SHIFT 3632];
   A 14021 2 true [REDUCE sym_declVar 8 0 276; SHIFT 3632];
   A 14024 2 true [REDUCE sym_declVar 8 0 277; SHIFT 3632];
   A 14027 2 true [REDUCE sym_declVar 6 0 132; SHIFT 3707];
   A 14030 2 true [REDUCE sym_declVar 8 0 278; SHIFT 3632];
   A 14033 2 true [REDUCE sym_declVar 6 0 199; SHIFT 3707];
   A 14036 2 true [REDUCE sym_declVar 6 0 200; SHIFT 3707];
   A 14039 2 true [REDUCE sym_declVar 6 0 201; SHIFT 3707];
   A 14042 2 true [REDUCE sym_declVar 6 0 202; SHIFT 3707];
   A 14045 2 true [REDUCE sym_declVar 6 0 203; SHIFT 3707];
   A 14048 2 true [REDUCE sym_declVar 6 0 204; SHIFT 3707];
   A 14051 2 true [REDUCE sym_declVar 6 0 205; SHIFT 3707];
   A 14054 2 true [REDUCE sym_declVar 6 0 206; SHIFT 3707];
   A 14057 2 true [REDUCE sym_declVar 7 0 154; SHIFT 3632];
   A 14060 2 true [REDUCE sym_declVar 7 0 246; SHIFT 3632];
   A 14063 2 true [REDUCE sym_declVar 6 0 94; SHIFT 3632];
   A 14066 2 true [REDUCE sym_declVar 4 0 94; SHIFT 3721];
   A 14069 2 true [REDUCE sym_declVar 4 0 95; SHIFT 3721];
   A 14072 2 true [REDUCE sym_declVar 9 0 294; SHIFT 3632];
   A 14075 2 true [REDUCE sym_declVar 9 0 295; SHIFT 3632];
   A 14078 2 true [REDUCE aux_sym_declVar_repeat2 2 0 55; SHIFT_REPEAT 3632];
   A 14081 2 true [REDUCE aux_sym_declVar_repeat2 2 0 55; SHIFT_REPEAT 3389];
   A 14084 2 true [REDUCE sym_declVar 6 0 197; SHIFT 3632];
   A 14087 2 true [REDUCE sym_declVar 6 0 95; SHIFT 3632];
   A 14090 2 true [REDUCE sym_declVar 6 0 198; SHIFT 3632];
   A 14093 2 true [REDUCE sym_declVar 6 0 124; SHIFT 3632];
   A 14096 2 true [REDUCE sym_declVar 6 0 132; SHIFT 3632];
   A 14099 2 true [REDUCE sym_declVar 6 0 199; SHIFT 3632];
   A 14102 2 true [REDUCE sym_declVar 6 0 200; SHIFT 3632];
   A 14105 2 true [REDUCE sym_declVar 6 0 201; SHIFT 3632];
   A 14108 2 true [REDUCE sym_declVar 6 0 202; SHIFT 3632];
   A 14111 2 true [REDUCE sym_declVar 6 0 203; SHIFT 3632];
   A 14114 2 true [REDUCE sym_declVar 5 0 150; SHIFT 3721];
   A 14117 2 true [REDUCE sym_declVar 5 0 147; SHIFT 3721];
   A 14120 2 true [REDUCE sym_declVar 5 0 151; SHIFT 3721];
   A 14123 2 true [REDUCE sym_declVar 5 0 152; SHIFT 3721];
   A 14126 2 true [REDUCE sym_declVar 5 0 66; SHIFT 3721];
   A 14129 2 true [REDUCE sym_declVar 5 0 153; SHIFT 3721];
   A 14132 2 true [REDUCE sym_declVar 5 0 154; SHIFT 3721];
   A 14135 2 true [REDUCE sym_declVar 5 0 155; SHIFT 3721];
   A 14138 2 true [REDUCE sym_declVar 6 0 204; SHIFT 3632];
   A 14141 2 true [REDUCE sym_declVar 6 0 205; SHIFT 3632];
   A 14144 2 true [REDUCE sym_declVar 6 0 206; SHIFT 3632];
   A 14147 2 true [REDUCE sym_declVar 7 0 239; SHIFT 3707];
   A 14150 2 true [REDUCE sym_declVar 7 0 240; SHIFT 3707];
   A 14153 2 true [REDUCE sym_declVar 7 0 66; SHIFT 3707];
   A 14156 2 true [REDUCE sym_declVar 7 0 238; SHIFT 3707];
   A 14159 2 true [REDUCE sym_declVar 7 0 239; SHIFT 3632];
   A 14162 2 true [REDUCE sym_declVar 7 0 153; SHIFT 3707];
   A 14165 2 true [REDUCE sym_declVar 7 0 241; SHIFT 3707];
   A 14168 2 true [REDUCE sym_declVar 7 0 242; SHIFT 3707];
   A 14171 2 true [REDUCE sym_declVar 7 0 240; SHIFT 3632];
   A 14174 2 true [REDUCE sym_declVar 7 0 66; SHIFT 3632];
   A 14177 2 true [REDUCE sym_declVar 7 0 238; SHIFT 3632];
   A 14180 2 true [REDUCE sym_declVar 7 0 243; SHIFT 3707];
   A 14183 2 true [REDUCE sym_declVar 7 0 244; SHIFT 3707];
   A 14186 2 true [REDUCE sym_declVar 7 0 153; SHIFT 3632];
   A 14189 2 true [REDUCE sym_declVar 7 0 241; SHIFT 3632];
   A 14192 2 true [REDUCE sym_declVar 7 0 242; SHIFT 3632];
   A 14195 2 true [REDUCE sym_declVar 7 0 245; SHIFT 3707];
   A 14198 2 true [REDUCE sym_declVar 6 0 94; SHIFT 3721];
   A 14201 2 true [REDUCE aux_sym_declVar_repeat2 2 0 55; SHIFT_REPEAT 3721];
   A 14204 2 true [REDUCE aux_sym_declVar_repeat2 2 0 55; SHIFT_REPEAT 3467];
   A 14207 2 true [REDUCE sym_declVar 6 0 197; SHIFT 3721];
   A 14210 2 true [REDUCE aux_sym_declVar_repeat2 2 0 55; SHIFT_REPEAT 3707];
   A 14213 2 true [REDUCE aux_sym_declVar_repeat2 2 0 55; SHIFT_REPEAT 3443];
   A 14216 2 true [REDUCE sym__declOperator 7 0 175; SHIFT 4085];
   A 14219 2 true [REDUCE sym__declProc 5 0 68; SHIFT 4085];
   A 14222 2 true [REDUCE sym__declProc 5 0 70; SHIFT 4085];
   A 14225 2 true [REDUCE sym__declProc 5 0 71; SHIFT 4085];
   A 14228 2 true [REDUCE sym__declProc 6 0 110; SHIFT 4085];
   A 14231 2 true [REDUCE sym__declProc 6 0 111; SHIFT 4085];
   A 14234 2 true [REDUCE sym__declProc 6 0 112; SHIFT 4085];
   A 14237 2 true [REDUCE sym__declProc 6 0 113; SHIFT 4085];
   A 14240 2 true [REDUCE sym__declProc 6 0 114; SHIFT 4085];
   A 14243 2 true [REDUCE sym__declProc 6 0 115; SHIFT 4085];
   A 14246 2 true [REDUCE sym__declProc 6 0 116; SHIFT 4085];
   A 14249 2 true [REDUCE sym__declProc 6 0 124; SHIFT 4085];
   A 14252 2 true [REDUCE sym__declProc 6 0 125; SHIFT 4085];
   A 14255 2 true [REDUCE sym__declProc 6 0 129; SHIFT 4085];
   A 14258 2 true [REDUCE sym__declProc 6 0 130; SHIFT 4085];
   A 14261 2 true [REDUCE sym__declProc 5 0 66; SHIFT 4085];
   A 14264 2 true [REDUCE sym__declOperator 6 0 144; SHIFT 4085];
   A 14267 2 true [REDUCE sym__declOperator 6 0 145; SHIFT 4085];
   A 14270 2 true [REDUCE sym__declProc 7 0 165; SHIFT 4085];
   A 14273 2 true [REDUCE sym__declProc 7 0 166; SHIFT 4085];
   A 14276 2 true [REDUCE sym__declProc 7 0 167; SHIFT 4085];
   A 14279 2 true [REDUCE sym__declProc 7 0 168; SHIFT 4085];
   A 14282 2 true [REDUCE sym__declProc 7 0 169; SHIFT 4085];
   A 14285 2 true [REDUCE sym__declProc 7 0 170; SHIFT 4085];
   A 14288 2 true [REDUCE sym__declProc 7 0 171; SHIFT 4085];
   A 14291 2 true [REDUCE sym__declProc 7 0 172; SHIFT 4085];
   A 14294 2 true [REDUCE sym__declProc 7 0 180; SHIFT 4085];
   A 14297 2 true [REDUCE sym__declProc 7 0 185; SHIFT 4085];
   A 14300 2 true [REDUCE sym__declProc 7 0 186; SHIFT 4085];
   A 14303 2 true [REDUCE sym__declOperator 6 0 113; SHIFT 4085];
   A 14306 2 true [REDUCE sym__declOperator 6 0 114; SHIFT 4085];
   A 14309 2 true [REDUCE sym__declOperator 6 0 146; SHIFT 4085];
   A 14312 2 true [REDUCE sym__declOperator 6 0 115; SHIFT 4085];
   A 14315 2 true [REDUCE sym__declOperator 6 0 116; SHIFT 4085];
   A 14318 2 true [REDUCE sym__declOperator 7 0 176; SHIFT 4085];
   A 14321 2 true [REDUCE sym__declProc 8 0 218; SHIFT 4085];
   A 14324 2 true [REDUCE sym__declProc 8 0 219; SHIFT 4085];
   A 14327 2 true [REDUCE sym__declProc 8 0 220; SHIFT 4085];
   A 14330 2 true [REDUCE sym__declProc 8 0 221; SHIFT 4085];
   A 14333 2 true [REDUCE sym__declProc 8 0 222; SHIFT 4085];
   A 14336 2 true [REDUCE sym__declProc 8 0 223; SHIFT 4085];
   A 14339 2 true [REDUCE sym__declProc 8 0 224; SHIFT 4085];
   A 14342 2 true [REDUCE sym__declProc 8 0 232; SHIFT 4085];
   A 14345 2 true [REDUCE sym__declOperator 7 0 180; SHIFT 4085];
   A 14348 2 true [REDUCE sym__declProc 9 0 261; SHIFT 4085];
   A 14351 2 true [REDUCE sym__declProc 9 0 262; SHIFT 4085];
   A 14354 2 true [REDUCE sym__declProc 9 0 263; SHIFT 4085];
   A 14357 2 true [REDUCE sym__declProc 9 0 264; SHIFT 4085];
   A 14360 2 true [REDUCE sym__declOperator 7 0 183; SHIFT 4085];
   A 14363 2 true [REDUCE sym__declOperator 7 0 184; SHIFT 4085];
   A 14366 2 true [REDUCE sym__declOperator 7 0 185; SHIFT 4085];
   A 14369 2 true [REDUCE sym__declOperator 7 0 186; SHIFT 4085];
   A 14372 2 true [REDUCE sym__declOperator 4 0 24; SHIFT 4085];
   A 14375 2 true [REDUCE sym__declOperator 4 0 27; SHIFT 4085];
   A 14378 2 true [REDUCE sym__declOperator 4 0 26; SHIFT 4085];
   A 14381 2 true [REDUCE sym__declOperator 7 0 193; SHIFT 4085];
   A 14384 2 true [REDUCE sym__declProc 10 0 290; SHIFT 4085];
   A 14387 2 true [REDUCE sym__declOperator 7 0 194; SHIFT 4085];
   A 14390 2 true [REDUCE sym__declOperator 7 0 169; SHIFT 4085];
   A 14393 2 true [REDUCE sym__declOperator 8 0 226; SHIFT 4085];
   A 14396 2 true [REDUCE sym__declOperator 7 0 170; SHIFT 4085];
   A 14399 2 true [REDUCE sym__declOperator 8 0 230; SHIFT 4085];
   A 14402 2 true [REDUCE sym__declOperator 9 0 268; SHIFT 4085];
   A 14405 2 true [REDUCE sym__declOperator 8 0 231; SHIFT 4085];
   A 14408 2 true [REDUCE sym__declOperator 8 0 232; SHIFT 4085];
   A 14411 2 true [REDUCE sym__declOperator 9 0 270; SHIFT 4085];
   A 14414 2 true [REDUCE sym__declOperator 9 0 271; SHIFT 4085];
   A 14417 2 true [REDUCE sym__declOperator 9 0 272; SHIFT 4085];
   A 14420 2 true [REDUCE sym__declOperator 7 0 195; SHIFT 4085];
   A 14423 2 true [REDUCE sym__declOperator 9 0 264; SHIFT 4085];
   A 14426 2 true [REDUCE sym__declOperator 7 0 196; SHIFT 4085];
   A 14429 2 true [REDUCE sym__declOperator 7 0 171; SHIFT 4085];
   A 14432 2 true [REDUCE sym__declOperator 6 0 130; SHIFT 4085];
   A 14435 2 true [REDUCE sym__declOperator 5 0 62; SHIFT 4085];
   A 14438 2 true [REDUCE sym__declOperator 5 0 63; SHIFT 4085];
   A 14441 2 true [REDUCE sym__declOperator 10 0 293; SHIFT 4085];
   A 14444 2 true [REDUCE aux_sym__declProc_repeat1 2 0 55; SHIFT_REPEAT 4085];
   A 14447 2 true [REDUCE sym__declOperator 8 0 234; SHIFT 4085];
   A 14450 2 true [REDUCE sym__declOperator 8 0 235; SHIFT 4085];
   A 14453 2 true [REDUCE sym__declOperator 8 0 222; SHIFT 4085];
   A 14456 2 true [REDUCE sym__declOperator 8 0 236; SHIFT 4085];
   A 14459 2 true [REDUCE sym__declOperator 5 0 66; SHIFT 4085];
   A 14462 2 true [REDUCE sym__declOperator 5 0 68; SHIFT 4085];
   A 14465 2 true [REDUCE sym__declOperator 5 0 69; SHIFT 4085]
  ].

Definition ts_parse_actions_14468 : list (Z * list TSParseActionEntry) :=
  [
   A 14468 2 true [REDUCE sym__declOperator 8 0 237; SHIFT 4085];
   A 14471 2 true [REDUCE sym__declOperator 8 0 223; SHIFT 4085];
   A 14474 2 true [REDUCE sym__declOperator 8 0 224; SHIFT 4085];
   A 14477 2 true [REDUCE sym__declOperator 5 0 70; SHIFT 4085];
   A 14480 2 true [REDUCE sym__declOperator 5 0 71; SHIFT 4085];
   A 14483 2 true [REDUCE sym__declOperator 4 0 31; SHIFT 4085];
   A 14486 2 true [REDUCE sym__declOperator 4 0 32; SHIFT 4085];
   A 14489 2 true [REDUCE sym__declOperator 5 0 91; SHIFT 4085];
   A 14492 2 true [REDUCE sym__declOperator 5 0 57; SHIFT 4085];
   A 14495 2 true [REDUCE sym__declOperator 5 0 58; SHIFT 4085];
   A 14498 2 true [REDUCE sym__declOperator 5 0 59; SHIFT 4085];
   A 14501 2 true [REDUCE sym__declProc 3 0 11; SHIFT 4085];
   A 14504 2 true [REDUCE sym__declProc 4 0 24; SHIFT 4085];
   A 14507 2 true [REDUCE sym__declOperator 3 0 11; SHIFT 4085];
   A 14510 2 true [REDUCE sym__declProc 4 0 27; SHIFT 4085];
   A 14513 2 true [REDUCE sym__declProc 4 0 31; SHIFT 4085];
   A 14516 2 true [REDUCE sym__declProc 4 0 32; SHIFT 4085];
   A 14519 2 true [REDUCE sym__declProc 5 0 56; SHIFT 4085];
   A 14522 2 true [REDUCE sym__declProc 5 0 57; SHIFT 4085];
   A 14525 2 true [REDUCE sym__declProc 5 0 58; SHIFT 4085];
   A 14528 2 true [REDUCE sym__declProc 5 0 59; SHIFT 4085];
   A 14531 2 true [REDUCE sym__declOperator 6 0 119; SHIFT 4085];
   A 14534 2 true [REDUCE sym__declOperator 6 0 120; SHIFT 4085];
   A 14537 2 true [REDUCE sym__declOperator 6 0 124; SHIFT 4085];
   A 14540 2 true [REDUCE sym__declOperator 6 0 125; SHIFT 4085];
   A 14543 2 true [REDUCE sym__declOperator 6 0 127; SHIFT 4085];
   A 14546 2 true [REDUCE sym__declOperator 6 0 128; SHIFT 4085];
   A 14549 2 true [REDUCE sym__declOperator 6 0 129; SHIFT 4085];
   A 14552 2 true [REDUCE sym__declOperator 7 0 172; SHIFT 4085];
   A 14555 2 true [REDUCE sym_declType 5 0 150; SHIFT 3679];
   A 14558 2 true [REDUCE sym_declConst 6 0 132; SHIFT 3679];
   A 14561 2 true [REDUCE sym_declType 6 0 207; SHIFT 3679];
   A 14564 2 true [REDUCE sym_declType 6 0 124; SHIFT 3679];
   A 14567 2 true [REDUCE sym_declType 6 0 211; SHIFT 3679];
   A 14570 2 true [REDUCE sym_declType 6 0 113; SHIFT 3679];
   A 14573 2 true [REDUCE sym_declConst 7 0 238; SHIFT 3679];
   A 14576 2 true [REDUCE sym_declType 5 0 66; SHIFT 3569];
   A 14579 2 true [REDUCE sym_declConst 5 0 147; SHIFT 3569];
   A 14582 2 true [REDUCE sym_declType 7 0 248; SHIFT 3679];
   A 14585 2 true [REDUCE sym_declType 7 0 254; SHIFT 3679];
   A 14588 2 true [REDUCE sym_declType 7 0 169; SHIFT 3679];
   A 14591 2 true [REDUCE sym_declConst 5 0 148; SHIFT 3569];
   A 14594 2 true [REDUCE sym_declType 8 0 284; SHIFT 3679];
   A 14597 2 true [REDUCE sym_declConst 3 0 46; SHIFT 3569];
   A 14600 2 true [REDUCE sym_declConst 5 0 147; SHIFT 3679];
   A 14603 2 true [REDUCE sym_declConst 5 0 148; SHIFT 3679];
   A 14606 2 true [REDUCE sym_declConst 3 0 46; SHIFT 3715];
   A 14609 2 true [REDUCE aux_sym_declProcFwd_repeat1 2 0 55; SHIFT_REPEAT 3569];
   A 14612 2 true [REDUCE sym_declType 8 0 284; SHIFT 3569];
   A 14615 2 true [REDUCE aux_sym_declProcFwd_repeat1 2 0 55; SHIFT_REPEAT 3715];
   A 14618 2 true [REDUCE sym_declConst 6 0 197; SHIFT 3569];
   A 14621 2 true [REDUCE sym_declConst 4 0 92; SHIFT 3715];
   A 14624 2 true [REDUCE sym_declConst 4 0 33; SHIFT 3715];
   A 14627 2 true [REDUCE sym_declType 5 0 66; SHIFT 3679];
   A 14630 2 true [REDUCE sym_declType 4 0 94; SHIFT 3715];
   A 14633 2 true [REDUCE sym_declConst 6 0 132; SHIFT 3569];
   A 14636 2 true [REDUCE sym_declType 5 0 158; SHIFT 3679];
   A 14639 2 true [REDUCE sym_declConst 5 0 147; SHIFT 3715];
   A 14642 2 true [REDUCE sym_declConst 5 0 148; SHIFT 3715];
   A 14645 2 true [REDUCE sym_declType 5 0 66; SHIFT 3715];
   A 14648 2 true [REDUCE sym_declType 5 0 158; SHIFT 3715];
   A 14651 2 true [REDUCE sym_declType 5 0 150; SHIFT 3715];
   A 14654 2 true [REDUCE sym_declConst 7 0 238; SHIFT 3569];
   A 14657 2 true [REDUCE sym_declType 5 0 158; SHIFT 3569];
   A 14660 2 true [REDUCE sym_declConst 6 0 197; SHIFT 3715];
   A 14663 2 true [REDUCE sym_declConst 6 0 132; SHIFT 3715];
   A 14666 2 true [REDUCE sym_declType 4 0 94; SHIFT 3679];
   A 14669 2 true [REDUCE sym_declType 5 0 150; SHIFT 3569];
   A 14672 2 true [REDUCE sym_declConst 4 0 33; SHIFT 3679];
   A 14675 2 true [REDUCE sym_declConst 6 0 197; SHIFT 3679];
   A 14678 2 true [REDUCE sym_declType 6 0 124; SHIFT 3715];
   A 14681 2 true [REDUCE sym_declType 6 0 211; SHIFT 3715];
   A 14684 2 true [REDUCE sym_declType 6 0 113; SHIFT 3715];
   A 14687 2 true [REDUCE sym_declConst 7 0 238; SHIFT 3715];
   A 14690 2 true [REDUCE sym_declType 6 0 207; SHIFT 3569];
   A 14693 2 true [REDUCE sym_declType 6 0 124; SHIFT 3569];
   A 14696 2 true [REDUCE sym_declType 7 0 248; SHIFT 3715];
   A 14699 2 true [REDUCE sym_declType 7 0 254; SHIFT 3715];
   A 14702 2 true [REDUCE sym_declType 7 0 169; SHIFT 3715];
   A 14705 2 true [REDUCE sym_declType 8 0 284; SHIFT 3715];
   A 14708 2 true [REDUCE sym_declConst 4 0 92; SHIFT 3569];
   A 14711 2 true [REDUCE sym_declConst 4 0 33; SHIFT 3569];
   A 14714 2 true [REDUCE sym_declType 6 0 211; SHIFT 3569];
   A 14717 2 true [REDUCE sym_declType 6 0 113; SHIFT 3569];
   A 14720 2 true [REDUCE sym_declType 7 0 248; SHIFT 3569];
   A 14723 2 true [REDUCE sym_declType 4 0 94; SHIFT 3569];
   A 14726 2 true [REDUCE sym_declType 7 0 254; SHIFT 3569];
   A 14729 2 true [REDUCE sym_declType 7 0 169; SHIFT 3569];
   A 14732 2 true [REDUCE sym_declConst 3 0 46; SHIFT 3679]; A 14735 1 true [SHIFT 3724];
   A 14737 1 false [SHIFT 5273]; A 14739 1 true [SHIFT 2833]; A 14741 1 true [SHIFT 12230];
   A 14743 1 false [SHIFT 3618]; A 14745 1 true [SHIFT 3618];
   A 14747 1 true [REDUCE sym_typeref 2 0 0]; A 14749 1 false [SHIFT 5130];
   A 14751 1 true [SHIFT 5130]; A 14753 1 true [SHIFT 3466]; A 14755 1 true [SHIFT 3626];
   A 14757 1 true [SHIFT 6283]; A 14759 1 true [SHIFT 5509]; A 14761 1 true [SHIFT 3629];
   A 14763 1 true [SHIFT 15313]; A 14765 1 true [REDUCE sym_typeref 3 0 64];
   A 14767 2 true [REDUCE aux_sym_declProcFwd_repeat1 2 0 55; SHIFT_REPEAT 3679];
   A 14770 2 true [REDUCE sym_declConst 4 0 92; SHIFT 3679];
   A 14773 2 true [REDUCE sym_declType 6 0 207; SHIFT 3715];
   A 14776 2 true [REDUCE aux_sym_declProcFwd_repeat1 2 0 55; SHIFT_REPEAT 3525];
   A 14779 2 true [REDUCE sym_declProcFwd 2 0 1; SHIFT 3601];
   A 14782 2 true [REDUCE sym_declProcFwd 4 0 52; SHIFT 3601];
   A 14785 2 true [REDUCE sym_declProcFwd 2 0 1; SHIFT 3525];
   A 14788 2 true [REDUCE sym_declProcFwd 4 0 52; SHIFT 3525];
   A 14791 2 true [REDUCE sym_declProcFwd 3 0 1; SHIFT 3525];
   A 14794 2 true [REDUCE sym_declProcFwd 4 0 52; SHIFT 3536];
   A 14797 2 true [REDUCE aux_sym_declProcFwd_repeat1 2 0 55; SHIFT_REPEAT 3536];
   A 14800 2 true [REDUCE aux_sym_declProcFwd_repeat1 2 0 55; SHIFT_REPEAT 3601];
   A 14803 2 true [REDUCE sym_declProcFwd 3 0 23; SHIFT 3525];
   A 14806 2 true [REDUCE sym_declProcFwd 2 0 1; SHIFT 3536];
   A 14809 2 true [REDUCE sym_declProcFwd 3 0 1; SHIFT 3601];
   A 14812 2 true [REDUCE sym_declProcFwd 3 0 1; SHIFT 3536];
   A 14815 2 true [REDUCE sym_declProcFwd 3 0 23; SHIFT 3536];
   A 14818 2 true [REDUCE sym_declProcFwd 3 0 23; SHIFT 3601]; A 14821 1 true [SHIFT 3653];
   A 14823 1 false [SHIFT 5231]; A 14825 1 true [SHIFT 3840]; A 14827 1 true [SHIFT 12059];
   A 14829 1 false [SHIFT 5943]; A 14831 1 true [SHIFT 5943]; A 14833 1 false [SHIFT 5214];
   A 14835 1 true [SHIFT 5214]; A 14837 1 true [SHIFT 5828]; A 14839 1 true [SHIFT 5816];
   A 14841 1 true [SHIFT 6234]; A 14843 1 true [SHIFT 5493]; A 14845 1 true [SHIFT 5822];
   A 14847 1 true [SHIFT 15200]; A 14849 1 false [SHIFT 12893]; A 14851 1 true [SHIFT 10482];
   A 14853 1 true [SHIFT 12301]; A 14855 1 false [SHIFT 10647]; A 14857 1 true [SHIFT 10647];
   A 14859 1 true [SHIFT 9833]; A 14861 1 false [SHIFT 8656]; A 14863 1 true [SHIFT 11233];
   A 14865 1 true [SHIFT 10505]; A 14867 1 true [SHIFT 10507]; A 14869 1 true [SHIFT 3458];
   A 14871 1 true [SHIFT 11242]; A 14873 1 true [SHIFT 15236]; A 14875 1 true [SHIFT 13584];
   A 14877 1 true [SHIFT 3172]; A 14879 1 true [SHIFT 3969]; A 14881 1 true [SHIFT 11972];
   A 14883 1 true [SHIFT 11238]; A 14885 1 true [SHIFT 11182]; A 14887 1 true [SHIFT 3374];
   A 14889 1 true [SHIFT 15435]; A 14891 1 true [SHIFT 10497]; A 14893 1 true [SHIFT 3136];
   A 14895 1 true [SHIFT 3150]; A 14897 1 true [SHIFT 3138]; A 14899 1 true [SHIFT 3174];
   A 14901 1 true [SHIFT 3141]; A 14903 1 true [SHIFT 3073]; A 14905 1 true [SHIFT 3112];
   A 14907 1 true [SHIFT 3145]; A 14909 1 true [SHIFT 3120]; A 14911 1 true [SHIFT 3148];
   A 14913 1 true [SHIFT 3114]; A 14915 1 true [SHIFT 3113]; A 14917 1 true [SHIFT 3068];
   A 14919 1 true [SHIFT 3123]; A 14921 1 true [SHIFT 3125]; A 14923 1 true [SHIFT 3129];
   A 14925 1 true [SHIFT 3126]; A 14927 1 true [SHIFT 3118]; A 14929 1 true [SHIFT 3096];
   A 14931 1 true [SHIFT 3130]; A 14933 1 true [SHIFT 3131]; A 14935 1 true [SHIFT 11550];
   A 14937 1 true [SHIFT 13684]; A 14939 1 true [SHIFT 11081]; A 14941 1 true [SHIFT 7812];
   A 14943 1 true [SHIFT 11602]; A 14945 1 true [SHIFT 12379]; A 14947 1 true [SHIFT 15953];
   A 14949 1 true [SHIFT 5517]; A 14951 1 true [SHIFT 5498]; A 14953 1 true [SHIFT 3483];
   A 14955 1 false [SHIFT 5295]; A 14957 1 true [SHIFT 6178]; A 14959 1 true [SHIFT 12141];
   A 14961 1 false [SHIFT 7196]; A 14963 1 true [SHIFT 7196]; A 14965 1 false [SHIFT 4317];
   A 14967 1 true [SHIFT 4317]; A 14969 1 true [SHIFT 7086]; A 14971 1 true [SHIFT 7106];
   A 14973 1 true [SHIFT 6311]; A 14975 1 true [SHIFT 5519]; A 14977 1 true [SHIFT 7080];
   A 14979 1 true [SHIFT 15393]; A 14981 1 true [REDUCE aux_sym_declProp_repeat2 1 0 0];
   A 14983 1 true [SHIFT 3604]; A 14985 1 false [SHIFT 5201]; A 14987 1 true [SHIFT 6248];
   A 14989 1 true [SHIFT 12256]; A 14991 1 false [SHIFT 7132]; A 14993 1 true [SHIFT 7132];
   A 14995 1 false [SHIFT 4993]; A 14997 1 true [SHIFT 4993]; A 14999 1 true [SHIFT 7054];
   A 15001 1 true [SHIFT 7042]; A 15003 1 true [SHIFT 6204]; A 15005 1 true [SHIFT 5488];
   A 15007 1 true [SHIFT 7040]; A 15009 1 true [SHIFT 15137]; A 15011 1 true [SHIFT 3722];
   A 15013 1 false [SHIFT 5016]; A 15015 1 true [SHIFT 7201]; A 15017 1 true [SHIFT 12082];
   A 15019 1 false [SHIFT 8466]; A 15021 1 true [SHIFT 8466]; A 15023 1 false [SHIFT 4346];
   A 15025 1 true [SHIFT 4346]; A 15027 1 true [SHIFT 7990]; A 15029 1 true [SHIFT 8004];
   A 15031 1 true [SHIFT 334]; A 15033 1 true [SHIFT 6323]; A 15035 1 true [SHIFT 5465];
   A 15037 1 true [SHIFT 8005]; A 15039 1 true [SHIFT 14734]; A 15041 1 true [SHIFT 235];
   A 15043 1 true [SHIFT 12277]; A 15045 1 true [SHIFT 309]; A 15047 1 true [SHIFT 191];
   A 15049 1 true [SHIFT 228]; A 15051 1 true [SHIFT 12887]; A 15053 1 true [SHIFT 363];
   A 15055 1 true [SHIFT 15188]; A 15057 1 true [SHIFT 190]; A 15059 1 true [SHIFT 13732];
   A 15061 1 true [SHIFT 313]; A 15063 1 true [SHIFT 13776]; A 15065 1 true [SHIFT 364];
   A 15067 1 true [SHIFT 282]; A 15069 1 true [SHIFT 263]; A 15071 1 true [SHIFT 5502];
   A 15073 1 true [SHIFT 314]; A 15075 1 true [SHIFT 318]; A 15077 1 true [SHIFT 14058];
   A 15079 1 true [SHIFT 268]; A 15081 1 true [SHIFT 289]; A 15083 1 true [SHIFT 13068];
   A 15085 1 true [SHIFT 372]; A 15087 1 true [SHIFT 14357]; A 15089 1 true [SHIFT 319];
   A 15091 1 true [SHIFT 257]; A 15093 1 true [SHIFT 13682]; A 15095 1 true [SHIFT 258];
   A 15097 1 true [SHIFT 212]; A 15099 1 true [SHIFT 373]; A 15101 1 true [SHIFT 236];
   A 15103 1 true [SHIFT 251]; A 15105 1 true [SHIFT 290]; A 15107 1 true [SHIFT 323];
   A 15109 1 true [SHIFT 13759]; A 15111 1 true [SHIFT 446]; A 15113 1 true [SHIFT 229];
   A 15115 1 true [SHIFT 382]; A 15117 1 true [SHIFT 15658]; A 15119 1 true [SHIFT 383];
   A 15121 1 true [SHIFT 328]; A 15123 1 true [SHIFT 11407]; A 15125 1 true [SHIFT 329];
   A 15127 1 true [SHIFT 193]; A 15129 1 true [SHIFT 15170]; A 15131 1 true [SHIFT 222];
   A 15133 1 true [SHIFT 12088]; A 15135 1 true [SHIFT 5507]; A 15137 1 true [SHIFT 389];
   A 15139 1 true [SHIFT 14523]; A 15141 1 true [SHIFT 217]; A 15143 1 true [SHIFT 390];
   A 15145 1 true [SHIFT 205]; A 15147 1 true [SHIFT 12515]; A 15149 1 true [SHIFT 333];
   A 15151 1 true [SHIFT 13901]; A 15153 1 true [SHIFT 197]; A 15155 1 true [SHIFT 12511];
   A 15157 1 true [SHIFT 223]; A 15159 1 true [SHIFT 262]; A 15161 1 true [SHIFT 12821];
   A 15163 1 true [SHIFT 395]; A 15165 1 true [SHIFT 15035]; A 15167 1 true [SHIFT 339];
   A 15169 1 true [SHIFT 13638]; A 15171 1 true [SHIFT 340]; A 15173 1 true [SHIFT 396];
   A 15175 1 true [SHIFT 194]; A 15177 1 true [SHIFT 298];
   A 15179 1 true [REDUCE sym_declString 2 0 0]; A 15181 1 false [SHIFT 5318];
   A 15183 1 true [SHIFT 5318]; A 15185 1 true [SHIFT 7210]; A 15187 1 true [SHIFT 5490];
   A 15189 1 true [SHIFT 346]; A 15191 1 true [SHIFT 13227]; A 15193 1 true [SHIFT 347];
   A 15195 1 true [SHIFT 401]; A 15197 1 true [SHIFT 15342]; A 15199 1 true [SHIFT 275];
   A 15201 1 true [SHIFT 13150]; A 15203 1 true [SHIFT 402]; A 15205 1 true [SHIFT 188];
   A 15207 1 true [SHIFT 13468]; A 15209 1 true [SHIFT 407]; A 15211 1 true [SHIFT 15761];
   A 15213 1 true [SHIFT 281]; A 15215 1 true [SHIFT 12602]; A 15217 1 true [SHIFT 408];
   A 15219 1 true [SHIFT 276]; A 15221 1 true [SHIFT 352]; A 15223 1 true [SHIFT 13232];
   A 15225 1 true [SHIFT 241]; A 15227 1 true [SHIFT 13975]; A 15229 1 true [SHIFT 308];
   A 15231 1 true [SHIFT 13572]; A 15233 1 true [REDUCE sym_literalString 1 0 0];
   A 15235 1 false [REDUCE sym_literalString 1 0 0]; A 15237 1 true [SHIFT 2834];
   A 15239 1 true [REDUCE aux_sym_literalString_repeat1 2 0 0];
   A 15241 1 false [REDUCE aux_sym_literalString_repeat1 2 0 0];
   A 15243 2 true [REDUCE aux_sym_literalString_repeat1 2 0 0; SHIFT_REPEAT 2834];
   A 15246 2 true [REDUCE aux_sym_literalString_repeat1 2 0 0; SHIFT_REPEAT 12230];
   A 15249 1 true [SHIFT 353]; A 15251 1 true [SHIFT 200]; A 15253 1 true [SHIFT 357];
   A 15255 1 true [SHIFT 13847]; A 15257 1 true [REDUCE sym_declString 5 0 0];
   A 15259 1 true [SHIFT 242]; A 15261 1 true [SHIFT 358]; A 15263 1 true [SHIFT 216];
   A 15265 1 true [SHIFT 13442]; A 15267 1 true [SHIFT 267]; A 15269 1 true [SHIFT 11544];
   A 15271 1 true [SHIFT 303]; A 15273 1 true [SHIFT 13421]; A 15275 1 true [SHIFT 206];
   A 15277 1 true [SHIFT 198]; A 15279 1 true [SHIFT 304]; A 15281 1 true [SHIFT 211];
   A 15283 1 true [SHIFT 11665]; A 15285 1 true [SHIFT 250]; A 15287 1 true [SHIFT 12954];
   A 15289 1 true [SHIFT 297]; A 15291 1 true [SHIFT 12135];
   A 15293 1 true [REDUCE sym_blockTr 2 0 0]; A 15295 1 false [REDUCE sym_blockTr 2 0 0];
   A 15297 1 true [SHIFT 5475]; A 15299 1 false [SHIFT 12589]; A 15301 1 true [SHIFT 11262];
   A 15303 1 true [SHIFT 10560]; A 15305 1 true [SHIFT 10555]; A 15307 1 true [SHIFT 11252];
   A 15309 1 true [SHIFT 15847]; A 15311 1 true [SHIFT 13139]; A 15313 1 true [SHIFT 15849];
   A 15315 1 true [SHIFT 13856]; A 15317 1 true [SHIFT 12818]; A 15319 1 true [SHIFT 11613];
   A 15321 1 true [SHIFT 13569]; A 15323 1 true [SHIFT 5571]; A 15325 1 true [SHIFT 15735];
   A 15327 1 true [SHIFT 10549]; A 15329 1 true [SHIFT 4093]; A 15331 1 true [SHIFT 4092];
   A 15333 1 true [SHIFT 2247]; A 15335 1 true [SHIFT 12917]; A 15337 1 true [SHIFT 4348];
   A 15339 1 true [SHIFT 12354]; A 15341 1 true [SHIFT 4068]; A 15343 1 true [SHIFT 3534];
   A 15345 1 true [SHIFT 4350]; A 15347 1 true [SHIFT 15529]; A 15349 1 true [SHIFT 2616];
   A 15351 1 true [SHIFT 4024]; A 15353 1 true [REDUCE sym_blockTr 3 0 0];
   A 15355 1 false [REDUCE sym_blockTr 3 0 0]; A 15357 1 false [SHIFT 12617];
   A 15359 1 true [SHIFT 11325]; A 15361 1 true [SHIFT 10358]; A 15363 1 true [SHIFT 10360];
   A 15365 1 true [SHIFT 11286]; A 15367 1 true [SHIFT 14146]; A 15369 1 true [SHIFT 13504];
   A 15371 1 true [SHIFT 14147]; A 15373 1 true [SHIFT 11203]; A 15375 1 true [SHIFT 10735];
   A 15377 1 true [SHIFT 10584]; A 15379 1 true [SHIFT 13834]; A 15381 1 true [SHIFT 5628];
   A 15383 1 true [SHIFT 15274]; A 15385 1 true [SHIFT 10359]; A 15387 1 true [SHIFT 15251];
   A 15389 1 true [SHIFT 12313]; A 15391 1 true [SHIFT 13642]; A 15393 1 true [SHIFT 5548];
   A 15395 1 true [SHIFT 2721]; A 15397 1 true [SHIFT 971];
   A 15399 1 true [REDUCE sym_lambda 4 0 75]; A 15401 1 false [REDUCE sym_lambda 4 0 75];
   A 15403 1 true [REDUCE sym__definition 1 0 0]; A 15405 1 false [SHIFT 12537];
   A 15407 1 true [SHIFT 11319]; A 15409 1 true [SHIFT 10538]; A 15411 1 true [SHIFT 10534];
   A 15413 1 true [SHIFT 11285]; A 15415 1 true [SHIFT 15538]; A 15417 1 true [SHIFT 13370];
   A 15419 1 true [SHIFT 15539]; A 15421 1 true [SHIFT 12752]; A 15423 1 true [SHIFT 12369];
   A 15425 1 true [SHIFT 11536]; A 15427 1 true [SHIFT 13090]; A 15429 1 true [SHIFT 5594];
   A 15431 1 true [SHIFT 14170]; A 15433 1 true [SHIFT 10537]; A 15435 1 true [SHIFT 2582];
   A 15437 1 true [REDUCE sym_lambda 5 0 135]; A 15439 1 false [REDUCE sym_lambda 5 0 135];
   A 15441 1 true [SHIFT 3740]; A 15443 1 false [SHIFT 5278]; A 15445 1 true [SHIFT 6946];
   A 15447 1 true [SHIFT 12400]; A 15449 1 false [SHIFT 7612]; A 15451 1 true [SHIFT 7612];
   A 15453 1 false [SHIFT 4212]; A 15455 1 true [SHIFT 4212]; A 15457 1 true [SHIFT 7425];
   A 15459 1 true [SHIFT 7421]; A 15461 1 true [SHIFT 6286]; A 15463 1 true [SHIFT 5511];
   A 15465 1 true [SHIFT 7424]; A 15467 1 true [SHIFT 15329]; A 15469 1 true [SHIFT 5505];
   A 15471 1 true [REDUCE sym_lambda 2 0 12]; A 15473 1 false [REDUCE sym_lambda 2 0 12];
   A 15475 1 true [SHIFT 3904]; A 15477 1 true [REDUCE sym_rttiAttributes 1 0 0];
   A 15479 2 true [REDUCE aux_sym_rttiAttributes_repeat2 2 0 0; SHIFT_REPEAT 3904];
   A 15482 1 true [REDUCE sym_lambda 3 0 36]; A 15484 1 false [REDUCE sym_lambda 3 0 36];
   A 15486 1 true [REDUCE sym_lambda 5 0 137]; A 15488 1 false [REDUCE sym_lambda 5 0 137];
   A 15490 1 true [REDUCE sym_lambda 4 0 73]; A 15492 1 false [REDUCE sym_lambda 4 0 73];
   A 15494 1 true [REDUCE sym_lambda 6 0 189]; A 15496 1 false [REDUCE sym_lambda 6 0 189];
   A 15498 1 true [SHIFT 1276]; A 15500 1 true [SHIFT 2584];
   A 15502 1 true [REDUCE sym_lambda 3 0 34]; A 15504 1 false [REDUCE sym_lambda 3 0 34];
   A 15506 1 true [SHIFT 5494];
   A 15508 2 true [REDUCE aux_sym_case_repeat1 2 0 0; SHIFT_REPEAT 3722];
   A 15511 2 false [REDUCE aux_sym_case_repeat1 2 0 0; SHIFT_REPEAT 5016];
   A 15514 2 true [REDUCE aux_sym_case_repeat1 2 0 0; SHIFT_REPEAT 7201];
   A 15517 2 true [REDUCE aux_sym_case_repeat1 2 0 0; SHIFT_REPEAT 12082];
   A 15520 2 false [REDUCE aux_sym_case_repeat1 2 0 0; SHIFT_REPEAT 8466];
   A 15523 2 true [REDUCE aux_sym_case_repeat1 2 0 0; SHIFT_REPEAT 8466];
   A 15526 2 false [REDUCE aux_sym_case_repeat1 2 0 0; SHIFT_REPEAT 4346];
   A 15529 2 true [REDUCE aux_sym_case_repeat1 2 0 0; SHIFT_REPEAT 4346];
   A 15532 2 true [REDUCE aux_sym_case_repeat1 2 0 0; SHIFT_REPEAT 7990];
   A 15535 2 true [REDUCE aux_sym_case_repeat1 2 0 0; SHIFT_REPEAT 8004];
   A 15538 1 true [REDUCE aux_sym_case_repeat1 2 0 0];
   A 15540 2 true [REDUCE aux_sym_case_repeat1 2 0 0; SHIFT_REPEAT 6323];
   A 15543 2 true [REDUCE aux_sym_case_repeat1 2 0 0; SHIFT_REPEAT 5465];
   A 15546 2 true [REDUCE aux_sym_case_repeat1 2 0 0; SHIFT_REPEAT 8005];
   A 15549 2 true [REDUCE aux_sym_case_repeat1 2 0 0; SHIFT_REPEAT 14734];
   A 15552 1 true [SHIFT 4119]; A 15554 1 true [SHIFT 5800]; A 15556 1 true [SHIFT 3805];
   A 15558 1 false [SHIFT 5293]; A 15560 1 true [SHIFT 6479]; A 15562 1 true [SHIFT 12138];
   A 15564 1 false [SHIFT 7416]; A 15566 1 true [SHIFT 7416]; A 15568 1 false [SHIFT 4306];
   A 15570 1 true [SHIFT 4306]; A 15572 1 true [SHIFT 7271]; A 15574 1 true [SHIFT 7269];
   A 15576 1 true [REDUCE sym_raiseTr 1 0 0]; A 15578 1 true [SHIFT 6306];
   A 15580 1 true [SHIFT 5518]; A 15582 1 true [SHIFT 7270]; A 15584 1 true [SHIFT 15385];
   A 15586 1 true [SHIFT 5469]; A 15588 1 true [SHIFT 5500];
   A 15590 1 true [REDUCE aux_sym_rttiAttributes_repeat2 5 0 0];
   A 15592 1 true [REDUCE aux_sym_rttiAttributes_repeat2 3 0 0];
   A 15594 1 true [REDUCE aux_sym_rttiAttributes_repeat2 6 0 0];
   A 15596 1 true [REDUCE aux_sym_rttiAttributes_repeat2 4 0 0];
   A 15598 2 true [REDUCE aux_sym__declProc_repeat1 2 0 55; SHIFT_REPEAT 4119];
   A 15601 1 true [SHIFT 5448]; A 15603 1 true [SHIFT 5605]; A 15605 1 true [SHIFT 11309];
   A 15607 1 true [SHIFT 7315]; A 15609 1 true [SHIFT 12002]; A 15611 1 true [SHIFT 7018];
   A 15613 1 true [SHIFT 11949]; A 15615 1 true [SHIFT 3540]; A 15617 1 false [SHIFT 5043];
   A 15619 1 true [SHIFT 7203]; A 15621 1 true [SHIFT 12433]; A 15623 1 false [SHIFT 8200];
   A 15625 1 true [SHIFT 8200]; A 15627 1 false [SHIFT 4410]; A 15629 1 true [SHIFT 4410];
   A 15631 1 true [SHIFT 8033]; A 15633 1 true [SHIFT 8054]; A 15635 1 true [SHIFT 8030];
   A 15637 1 true [SHIFT 6190]; A 15639 1 true [SHIFT 5468]; A 15641 1 true [SHIFT 8031];
   A 15643 1 true [SHIFT 11925]; A 15645 1 true [SHIFT 14077]; A 15647 1 true [SHIFT 3520];
   A 15649 1 false [SHIFT 3069]; A 15651 1 true [SHIFT 7100]; A 15653 1 true [SHIFT 12442];
   A 15655 1 false [SHIFT 8129]; A 15657 1 true [SHIFT 8129]; A 15659 1 false [SHIFT 4776];
   A 15661 1 true [SHIFT 4776]; A 15663 1 true [SHIFT 7786]; A 15665 1 true [SHIFT 8454];
   A 15667 1 true [SHIFT 7875]; A 15669 1 true [SHIFT 6200]; A 15671 1 true [SHIFT 5528];
   A 15673 1 true [SHIFT 7881]; A 15675 1 true [SHIFT 15452]; A 15677 1 true [SHIFT 3620];
   A 15679 1 false [SHIFT 5212]; A 15681 1 true [SHIFT 7321]; A 15683 1 true [SHIFT 12451];
   A 15685 1 false [SHIFT 8792]; A 15687 1 true [SHIFT 8792]; A 15689 1 false [SHIFT 5054];
   A 15691 1 true [SHIFT 5054]; A 15693 1 true [SHIFT 8443]; A 15695 1 true [SHIFT 8448];
   A 15697 1 true [SHIFT 8434]; A 15699 1 true [SHIFT 6211]; A 15701 1 true [SHIFT 5491];
   A 15703 1 true [SHIFT 8442]; A 15705 1 true [SHIFT 12028]; A 15707 1 true [SHIFT 7352];
   A 15709 1 true [SHIFT 11876]; A 15711 1 true [SHIFT 3514]; A 15713 1 false [SHIFT 5152];
   A 15715 1 true [SHIFT 7548]; A 15717 1 true [SHIFT 12144]; A 15719 1 false [SHIFT 9361];
   A 15721 1 true [SHIFT 9361]; A 15723 1 false [SHIFT 4745]; A 15725 1 true [SHIFT 4745];
   A 15727 1 true [SHIFT 8938]; A 15729 1 true [SHIFT 8917]; A 15731 1 true [SHIFT 8936];
   A 15733 1 true [SHIFT 6149]; A 15735 1 true [SHIFT 5484]; A 15737 1 true [SHIFT 8937];
   A 15739 1 true [SHIFT 11887]; A 15741 1 true [SHIFT 7150]; A 15743 1 true [SHIFT 12045];
   A 15745 1 false [SHIFT 4736]; A 15747 1 false [SHIFT 4389]; A 15749 1 true [SHIFT 4389];
   A 15751 1 true [SHIFT 8464]; A 15753 1 true [SHIFT 8549]; A 15755 1 true [SHIFT 5223];
   A 15757 1 true [SHIFT 11915]; A 15759 1 true [SHIFT 8102]; A 15761 1 true [SHIFT 3668];
   A 15763 1 false [SHIFT 4999]; A 15765 1 true [SHIFT 7467]; A 15767 1 true [SHIFT 12414];
   A 15769 1 false [SHIFT 9180]; A 15771 1 true [SHIFT 9180]; A 15773 1 false [SHIFT 4783];
   A 15775 1 true [SHIFT 4783]; A 15777 1 true [SHIFT 8804]; A 15779 1 true [SHIFT 9336];
   A 15781 1 true [SHIFT 8650]; A 15783 1 true [SHIFT 6294]; A 15785 1 true [SHIFT 5463];
   A 15787 1 true [SHIFT 8652]; A 15789 1 true [SHIFT 12047]; A 15791 1 true [SHIFT 3591];
   A 15793 1 false [SHIFT 5057]; A 15795 1 true [SHIFT 7328]; A 15797 1 true [SHIFT 12432];
   A 15799 1 false [SHIFT 8765]; A 15801 1 true [SHIFT 8765]; A 15803 1 false [SHIFT 4452];
   A 15805 1 true [SHIFT 4452]; A 15807 1 true [SHIFT 8252]; A 15809 1 true [SHIFT 8292];
   A 15811 1 true [SHIFT 8248]; A 15813 1 true [SHIFT 6198]; A 15815 1 true [SHIFT 5471];
   A 15817 1 true [SHIFT 8249]; A 15819 1 true [SHIFT 12016]; A 15821 1 true [SHIFT 7148];
   A 15823 1 true [SHIFT 12011]; A 15825 1 true [SHIFT 7488]; A 15827 1 true [SHIFT 11967];
   A 15829 1 true [SHIFT 5437]; A 15831 1 true [SHIFT 3564]; A 15833 1 false [SHIFT 5184];
   A 15835 1 true [SHIFT 7556]; A 15837 1 true [SHIFT 12391]; A 15839 1 false [SHIFT 9267];
   A 15841 1 true [SHIFT 9267]; A 15843 1 false [SHIFT 4913]; A 15845 1 true [SHIFT 4913];
   A 15847 1 true [SHIFT 8649]; A 15849 1 true [SHIFT 8661]; A 15851 1 true [SHIFT 8639];
   A 15853 1 true [SHIFT 6183]; A 15855 1 true [SHIFT 5487]; A 15857 1 true [SHIFT 8644];
   A 15859 1 true [SHIFT 11981]; A 15861 1 true [SHIFT 5867]; A 15863 1 true [SHIFT 11692];
   A 15865 1 true [SHIFT 3530]; A 15867 1 false [SHIFT 5164]; A 15869 1 true [SHIFT 7298];
   A 15871 1 true [SHIFT 12242]; A 15873 1 false [SHIFT 8622]; A 15875 1 true [SHIFT 8622];
   A 15877 1 false [SHIFT 4817]; A 15879 1 true [SHIFT 4817]; A 15881 1 true [SHIFT 8584];
   A 15883 1 true [SHIFT 8302]; A 15885 1 true [SHIFT 8582]; A 15887 1 true [SHIFT 6157];
   A 15889 1 true [SHIFT 5485]; A 15891 1 true [SHIFT 8583]; A 15893 1 true [SHIFT 11911];
   A 15895 1 true [SHIFT 3670]; A 15897 1 false [SHIFT 5238]; A 15899 1 true [SHIFT 7161];
   A 15901 1 true [SHIFT 12161]; A 15903 1 false [SHIFT 8314]; A 15905 1 true [SHIFT 8314];
   A 15907 1 false [SHIFT 5332]; A 15909 1 true [SHIFT 5332]; A 15911 1 true [SHIFT 8003];
   A 15913 1 true [SHIFT 7949]; A 15915 1 true [SHIFT 7981]; A 15917 1 true [SHIFT 6247];
   A 15919 1 true [SHIFT 5496]; A 15921 1 true [SHIFT 7987]; A 15923 1 true [SHIFT 11702];
   A 15925 1 true [SHIFT 3542]; A 15927 1 false [SHIFT 5071]; A 15929 1 true [SHIFT 7490];
   A 15931 1 true [SHIFT 12363]; A 15933 1 false [SHIFT 9150]; A 15935 1 true [SHIFT 9150];
   A 15937 1 false [SHIFT 4476]; A 15939 1 true [SHIFT 4476]; A 15941 1 true [SHIFT 8764];
   A 15943 1 true [SHIFT 8791]; A 15945 1 true [SHIFT 8761]; A 15947 1 true [SHIFT 6171];
   A 15949 1 true [SHIFT 5473]; A 15951 1 true [SHIFT 8762]; A 15953 1 true [SHIFT 11720];
   A 15955 1 true [SHIFT 7255]; A 15957 1 true [SHIFT 11707]; A 15959 1 true [SHIFT 3692];
   A 15961 1 false [SHIFT 5255]; A 15963 1 true [SHIFT 6950]; A 15965 1 true [SHIFT 12215];
   A 15967 1 false [SHIFT 7734]; A 15969 1 true [SHIFT 7734]; A 15971 1 false [SHIFT 5072];
   A 15973 1 true [SHIFT 5072]; A 15975 1 true [SHIFT 7373]; A 15977 1 true [SHIFT 7371];
   A 15979 1 true [SHIFT 6264]; A 15981 1 true [SHIFT 5499]; A 15983 1 true [SHIFT 7372];
   A 15985 1 true [SHIFT 15260]; A 15987 1 true [SHIFT 3596]; A 15989 1 false [SHIFT 4874];
   A 15991 1 true [SHIFT 7769]; A 15993 1 true [SHIFT 12405]; A 15995 1 false [SHIFT 9525];
   A 15997 1 true [SHIFT 9525]; A 15999 1 false [SHIFT 4586]; A 16001 1 true [SHIFT 4586];
   A 16003 1 true [SHIFT 9072]; A 16005 1 true [SHIFT 9345]; A 16007 1 true [SHIFT 9311];
   A 16009 1 true [SHIFT 6140]; A 16011 1 true [SHIFT 5442]; A 16013 1 true [SHIFT 9312];
   A 16015 1 true [SHIFT 11891]; A 16017 1 true [SHIFT 7163]; A 16019 1 true [SHIFT 11712];
   A 16021 1 true [SHIFT 3687]; A 16023 1 false [SHIFT 5251]; A 16025 1 true [SHIFT 7393];
   A 16027 1 true [SHIFT 12080]; A 16029 1 false [SHIFT 9151]; A 16031 1 true [SHIFT 9151];
   A 16033 1 false [SHIFT 5524]; A 16035 1 true [SHIFT 5524]; A 16037 1 true [SHIFT 8705];
   A 16039 1 true [SHIFT 8923]; A 16041 1 true [SHIFT 8702]; A 16043 1 true [SHIFT 6258];
   A 16045 1 true [SHIFT 5497]; A 16047 1 true [SHIFT 8703]; A 16049 1 true [SHIFT 11717];
   A 16051 1 true [SHIFT 7396]; A 16053 1 true [SHIFT 11722]; A 16055 1 true [SHIFT 7699];
   A 16057 1 true [SHIFT 12036]; A 16059 1 false [SHIFT 4370]; A 16061 1 true [SHIFT 4370];
   A 16063 1 true [SHIFT 7805]; A 16065 1 true [SHIFT 5521]; A 16067 1 true [SHIFT 7358];
   A 16069 1 true [SHIFT 11993]; A 16071 1 true [SHIFT 3696]; A 16073 1 false [SHIFT 5259];
   A 16075 1 true [SHIFT 7257]; A 16077 1 true [SHIFT 12281]; A 16079 1 false [SHIFT 8930];
   A 16081 1 true [SHIFT 8930]; A 16083 1 false [SHIFT 4213]; A 16085 1 true [SHIFT 4213];
   A 16087 1 true [SHIFT 8310]; A 16089 1 true [SHIFT 8541]; A 16091 1 true [SHIFT 8304];
   A 16093 1 true [SHIFT 6268]; A 16095 1 true [SHIFT 5501]; A 16097 1 true [SHIFT 8305];
   A 16099 1 true [SHIFT 11728]; A 16101 1 true [SHIFT 3701]; A 16103 1 false [SHIFT 5262];
   A 16105 1 true [SHIFT 7068]; A 16107 1 true [SHIFT 12409]; A 16109 1 false [SHIFT 8060];
   A 16111 1 true [SHIFT 8060]; A 16113 1 false [SHIFT 4505]; A 16115 1 true [SHIFT 4505];
   A 16117 1 true [SHIFT 7822]; A 16119 1 true [SHIFT 7811]; A 16121 1 true [SHIFT 7818];
   A 16123 1 true [SHIFT 6271]; A 16125 1 true [SHIFT 5503]; A 16127 1 true [SHIFT 7821];
   A 16129 1 true [SHIFT 11733]; A 16131 1 true [SHIFT 3706]; A 16133 1 false [SHIFT 5265];
   A 16135 1 true [SHIFT 7260]; A 16137 1 true [SHIFT 12083]; A 16139 1 false [SHIFT 8630];
   A 16141 1 true [SHIFT 8630]; A 16143 1 false [SHIFT 4739]; A 16145 1 true [SHIFT 4739];
   A 16147 1 true [SHIFT 8446]; A 16149 1 true [SHIFT 8323]; A 16151 1 true [SHIFT 8440];
   A 16153 1 true [SHIFT 6275]; A 16155 1 true [SHIFT 5504]; A 16157 1 true [SHIFT 8441];
   A 16159 1 true [SHIFT 11738]; A 16161 1 true [SHIFT 3711]; A 16163 1 false [SHIFT 5268];
   A 16165 1 true [SHIFT 7166]; A 16167 1 true [SHIFT 12118]; A 16169 1 false [SHIFT 8481];
   A 16171 1 true [SHIFT 8481]; A 16173 1 false [SHIFT 4892]; A 16175 1 true [SHIFT 4892];
   A 16177 1 true [SHIFT 8150]; A 16179 1 true [SHIFT 8147]; A 16181 1 true [SHIFT 8148];
   A 16183 1 true [SHIFT 6279]; A 16185 1 true [SHIFT 5506]; A 16187 1 true [SHIFT 8149];
   A 16189 1 true [SHIFT 11742]; A 16191 1 true [SHIFT 3717]
  ].

Definition ts_parse_actions_16193 : list (Z * list TSParseActionEntry) :=
  [
   A 16193 1 false [SHIFT 5271]; A 16195 1 true [SHIFT 7098]; A 16197 1 true [SHIFT 12175];
   A 16199 1 false [SHIFT 7995]; A 16201 1 true [SHIFT 7995]; A 16203 1 false [SHIFT 5010];
   A 16205 1 true [SHIFT 5010]; A 16207 1 true [SHIFT 7895]; A 16209 1 true [SHIFT 7782];
   A 16211 1 true [SHIFT 7922]; A 16213 1 true [SHIFT 6281]; A 16215 1 true [SHIFT 5508];
   A 16217 1 true [SHIFT 7813]; A 16219 1 true [SHIFT 11747]; A 16221 1 false [SHIFT 4209];
   A 16223 1 true [SHIFT 4209]; A 16225 1 true [SHIFT 9076]; A 16227 1 true [SHIFT 9245];
   A 16229 1 true [SHIFT 5459]; A 16231 1 true [SHIFT 3427]; A 16233 1 true [SHIFT 11750];
   A 16235 1 true [SHIFT 7471]; A 16237 1 true [SHIFT 11971]; A 16239 1 false [SHIFT 5320];
   A 16241 1 true [SHIFT 5320]; A 16243 1 true [SHIFT 8367]; A 16245 1 true [SHIFT 5522];
   A 16247 1 true [SHIFT 3579]; A 16249 1 false [SHIFT 4839]; A 16251 1 true [SHIFT 7207];
   A 16253 1 true [SHIFT 12130]; A 16255 1 false [SHIFT 8258]; A 16257 1 true [SHIFT 8258];
   A 16259 1 false [SHIFT 4919]; A 16261 1 true [SHIFT 4919]; A 16263 1 true [SHIFT 8006];
   A 16265 1 true [SHIFT 8070]; A 16267 1 true [SHIFT 8050]; A 16269 1 true [SHIFT 6148];
   A 16271 1 true [SHIFT 5429]; A 16273 1 true [SHIFT 8051]; A 16275 1 true [SHIFT 11819];
   A 16277 1 true [SHIFT 3681]; A 16279 1 false [SHIFT 5087]; A 16281 1 true [SHIFT 7217];
   A 16283 1 true [SHIFT 12208]; A 16285 1 false [SHIFT 8374]; A 16287 1 true [SHIFT 8374];
   A 16289 1 false [SHIFT 4531]; A 16291 1 true [SHIFT 4531]; A 16293 1 true [SHIFT 8074];
   A 16295 1 true [SHIFT 8110]; A 16297 1 true [SHIFT 8072]; A 16299 1 true [SHIFT 6152];
   A 16301 1 true [SHIFT 5477]; A 16303 1 true [SHIFT 8073]; A 16305 1 true [SHIFT 11766];
   A 16307 1 true [SHIFT 3527]; A 16309 1 false [SHIFT 5099]; A 16311 1 true [SHIFT 7219];
   A 16313 1 true [SHIFT 12052]; A 16315 1 false [SHIFT 8420]; A 16317 1 true [SHIFT 8420];
   A 16319 1 false [SHIFT 4569]; A 16321 1 true [SHIFT 4569]; A 16323 1 true [SHIFT 8095];
   A 16325 1 true [SHIFT 8438]; A 16327 1 true [SHIFT 8092]; A 16329 1 true [SHIFT 6337];
   A 16331 1 true [SHIFT 5479]; A 16333 1 true [SHIFT 8093]; A 16335 1 true [SHIFT 11791];
   A 16337 1 true [SHIFT 3735]; A 16339 1 false [SHIFT 5275]; A 16341 1 true [SHIFT 7011];
   A 16343 1 true [SHIFT 12286]; A 16345 1 false [SHIFT 7828]; A 16347 1 true [SHIFT 7828];
   A 16349 1 false [SHIFT 5386]; A 16351 1 true [SHIFT 5386]; A 16353 1 true [SHIFT 7566];
   A 16355 1 true [SHIFT 7606]; A 16357 1 true [SHIFT 7564]; A 16359 1 true [SHIFT 6284];
   A 16361 1 true [SHIFT 5510]; A 16363 1 true [SHIFT 7565]; A 16365 1 true [SHIFT 11757];
   A 16367 1 true [SHIFT 8187]; A 16369 1 true [SHIFT 11898]; A 16371 1 true [SHIFT 7493];
   A 16373 1 true [SHIFT 11763]; A 16375 1 true [SHIFT 3744]; A 16377 1 false [SHIFT 5280];
   A 16379 1 true [SHIFT 7169]; A 16381 1 true [SHIFT 12056]; A 16383 1 false [SHIFT 8530];
   A 16385 1 true [SHIFT 8530]; A 16387 1 false [SHIFT 4227]; A 16389 1 true [SHIFT 4227];
   A 16391 1 true [SHIFT 8170]; A 16393 1 true [SHIFT 7992]; A 16395 1 true [SHIFT 8167];
   A 16397 1 true [SHIFT 6287]; A 16399 1 true [SHIFT 5512]; A 16401 1 true [SHIFT 8168];
   A 16403 1 true [SHIFT 11769]; A 16405 1 true [SHIFT 3567]; A 16407 1 false [SHIFT 5109];
   A 16409 1 true [SHIFT 7508]; A 16411 1 true [SHIFT 12300]; A 16413 1 false [SHIFT 9247];
   A 16415 1 true [SHIFT 9247]; A 16417 1 false [SHIFT 4599]; A 16419 1 true [SHIFT 4599];
   A 16421 1 true [SHIFT 8844]; A 16423 1 true [SHIFT 8905]; A 16425 1 true [SHIFT 8841];
   A 16427 1 true [SHIFT 6165]; A 16429 1 true [SHIFT 5480]; A 16431 1 true [SHIFT 8842];
   A 16433 1 true [SHIFT 11812]; A 16435 1 true [SHIFT 3750]; A 16437 1 false [SHIFT 5282];
   A 16439 1 true [SHIFT 7280]; A 16441 1 true [SHIFT 12070]; A 16443 1 false [SHIFT 8859];
   A 16445 1 true [SHIFT 8859]; A 16447 1 false [SHIFT 4246]; A 16449 1 true [SHIFT 4246];
   A 16451 1 true [SHIFT 8207]; A 16453 1 true [SHIFT 8253]; A 16455 1 true [SHIFT 8199];
   A 16457 1 true [SHIFT 6292]; A 16459 1 true [SHIFT 5513]; A 16461 1 true [SHIFT 8201];
   A 16463 1 true [SHIFT 11775]; A 16465 1 true [REDUCE sym_literalChar 2 0 0];
   A 16467 1 false [REDUCE sym_literalChar 2 0 0]; A 16469 1 true [SHIFT 3754];
   A 16471 1 false [SHIFT 5284]; A 16473 1 true [SHIFT 7193]; A 16475 1 true [SHIFT 12101];
   A 16477 1 false [SHIFT 8445]; A 16479 1 true [SHIFT 8445]; A 16481 1 false [SHIFT 4256];
   A 16483 1 true [SHIFT 4256]; A 16485 1 true [SHIFT 7957]; A 16487 1 true [SHIFT 8108];
   A 16489 1 true [SHIFT 7954]; A 16491 1 true [SHIFT 6296]; A 16493 1 true [SHIFT 5514];
   A 16495 1 true [SHIFT 7956]; A 16497 1 true [SHIFT 11782]; A 16499 1 true [SHIFT 3759];
   A 16501 1 false [SHIFT 5286]; A 16503 1 true [SHIFT 7300]; A 16505 1 true [SHIFT 12131];
   A 16507 1 false [SHIFT 8924]; A 16509 1 true [SHIFT 8924]; A 16511 1 false [SHIFT 4274];
   A 16513 1 true [SHIFT 4274]; A 16515 1 true [SHIFT 8299]; A 16517 1 true [SHIFT 8471];
   A 16519 1 true [SHIFT 8288]; A 16521 1 true [SHIFT 6299]; A 16523 1 true [SHIFT 5515];
   A 16525 1 true [SHIFT 8291]; A 16527 1 true [SHIFT 11787]; A 16529 1 true [SHIFT 6725];
   A 16531 1 true [SHIFT 11794]; A 16533 1 true [SHIFT 7144]; A 16535 1 true [SHIFT 3769];
   A 16537 1 false [SHIFT 5291]; A 16539 1 true [SHIFT 7304]; A 16541 1 true [SHIFT 12137];
   A 16543 1 false [SHIFT 8601]; A 16545 1 true [SHIFT 8601]; A 16547 1 false [SHIFT 4296];
   A 16549 1 true [SHIFT 4296]; A 16551 1 true [SHIFT 8287]; A 16553 1 true [SHIFT 8433];
   A 16555 1 true [SHIFT 8283]; A 16557 1 true [SHIFT 6304]; A 16559 1 true [SHIFT 5516];
   A 16561 1 true [SHIFT 8285]; A 16563 1 true [SHIFT 11801]; A 16565 1 true [SHIFT 7302];
   A 16567 1 true [SHIFT 11807]; A 16569 1 true [SHIFT 3661]; A 16571 1 false [SHIFT 4905];
   A 16573 1 true [SHIFT 7286]; A 16575 1 true [SHIFT 12153]; A 16577 1 false [SHIFT 8889];
   A 16579 1 true [SHIFT 8889]; A 16581 1 false [SHIFT 4318]; A 16583 1 true [SHIFT 4318];
   A 16585 1 true [SHIFT 8506]; A 16587 1 true [SHIFT 8578]; A 16589 1 true [SHIFT 8516];
   A 16591 1 true [SHIFT 6173]; A 16593 1 true [SHIFT 5453]; A 16595 1 true [SHIFT 8542];
   A 16597 1 true [SHIFT 11945]; A 16599 1 true [SHIFT 3749]; A 16601 1 false [SHIFT 5030];
   A 16603 1 true [SHIFT 7477]; A 16605 1 true [SHIFT 12418]; A 16607 1 false [SHIFT 9368];
   A 16609 1 true [SHIFT 9368]; A 16611 1 false [SHIFT 4386]; A 16613 1 true [SHIFT 4386];
   A 16615 1 true [SHIFT 8680]; A 16617 1 true [SHIFT 8704]; A 16619 1 true [SHIFT 8675];
   A 16621 1 true [SHIFT 6335]; A 16623 1 true [SHIFT 5467]; A 16625 1 true [SHIFT 8677];
   A 16627 1 true [SHIFT 11831]; A 16629 1 true [SHIFT 3617]; A 16631 1 false [SHIFT 5119];
   A 16633 1 true [SHIFT 7517]; A 16635 1 true [SHIFT 12398]; A 16637 1 false [SHIFT 9289];
   A 16639 1 true [SHIFT 9289]; A 16641 1 false [SHIFT 4637]; A 16643 1 true [SHIFT 4637];
   A 16645 1 true [SHIFT 8867]; A 16647 1 true [SHIFT 8926]; A 16649 1 true [SHIFT 8864];
   A 16651 1 true [SHIFT 6176]; A 16653 1 true [SHIFT 5482]; A 16655 1 true [SHIFT 8865];
   A 16657 1 true [SHIFT 11844]; A 16659 1 true [SHIFT 11288]; A 16661 1 true [SHIFT 10383];
   A 16663 1 true [SHIFT 10398]; A 16665 1 true [SHIFT 11292]; A 16667 1 true [SHIFT 10366];
   A 16669 1 true [SHIFT 7088]; A 16671 1 true [SHIFT 11813]; A 16673 1 true [SHIFT 3487];
   A 16675 1 false [SHIFT 5299]; A 16677 1 true [SHIFT 6650]; A 16679 1 true [SHIFT 12142];
   A 16681 1 false [SHIFT 7694]; A 16683 1 true [SHIFT 7694]; A 16685 1 false [SHIFT 4329];
   A 16687 1 true [SHIFT 4329]; A 16689 1 true [SHIFT 7401]; A 16691 1 true [SHIFT 7420];
   A 16693 1 true [SHIFT 7399]; A 16695 1 true [SHIFT 6315]; A 16697 1 true [SHIFT 5520];
   A 16699 1 true [SHIFT 7400]; A 16701 1 true [SHIFT 11824];
   A 16703 1 true [REDUCE sym_declClass 1 0 0]; A 16705 1 false [SHIFT 10623];
   A 16707 1 true [SHIFT 4059]; A 16709 1 true [SHIFT 3978]; A 16711 1 true [SHIFT 15808];
   A 16713 1 true [SHIFT 10731]; A 16715 1 true [SHIFT 3666]; A 16717 1 false [SHIFT 5129];
   A 16719 1 true [SHIFT 7014]; A 16721 1 true [SHIFT 12274]; A 16723 1 false [SHIFT 7901];
   A 16725 1 true [SHIFT 7901]; A 16727 1 false [SHIFT 4670]; A 16729 1 true [SHIFT 4670];
   A 16731 1 true [SHIFT 7757]; A 16733 1 true [SHIFT 7776]; A 16735 1 true [SHIFT 7755];
   A 16737 1 true [SHIFT 6193]; A 16739 1 true [SHIFT 5483]; A 16741 1 true [SHIFT 7756];
   A 16743 1 true [SHIFT 11858]; A 16745 1 true [SHIFT 15985];
   A 16747 2 true [REDUCE aux_sym_declVariant_repeat1 2 0 0; SHIFT_REPEAT 3722];
   A 16750 2 false [REDUCE aux_sym_declVariant_repeat1 2 0 0; SHIFT_REPEAT 5016];
   A 16753 2 true [REDUCE aux_sym_declVariant_repeat1 2 0 0; SHIFT_REPEAT 7201];
   A 16756 2 true [REDUCE aux_sym_declVariant_repeat1 2 0 0; SHIFT_REPEAT 12082];
   A 16759 2 false [REDUCE aux_sym_declVariant_repeat1 2 0 0; SHIFT_REPEAT 8466];
   A 16762 2 true [REDUCE aux_sym_declVariant_repeat1 2 0 0; SHIFT_REPEAT 8466];
   A 16765 2 false [REDUCE aux_sym_declVariant_repeat1 2 0 0; SHIFT_REPEAT 4346];
   A 16768 2 true [REDUCE aux_sym_declVariant_repeat1 2 0 0; SHIFT_REPEAT 4346];
   A 16771 2 true [REDUCE aux_sym_declVariant_repeat1 2 0 0; SHIFT_REPEAT 7990];
   A 16774 2 true [REDUCE aux_sym_declVariant_repeat1 2 0 0; SHIFT_REPEAT 8004];
   A 16777 2 true [REDUCE aux_sym_declVariant_repeat1 2 0 0; SHIFT_REPEAT 6323];
   A 16780 2 true [REDUCE aux_sym_declVariant_repeat1 2 0 0; SHIFT_REPEAT 5465];
   A 16783 2 true [REDUCE aux_sym_declVariant_repeat1 2 0 0; SHIFT_REPEAT 8005];
   A 16786 2 true [REDUCE aux_sym_declVariant_repeat1 2 0 0; SHIFT_REPEAT 14734];
   A 16789 1 true [REDUCE aux_sym__procAttributesPp_repeat2 1 0 0];
   A 16791 1 true [REDUCE aux_sym__procAttributesPp_repeat2 2 0 121];
   A 16793 2 true [REDUCE aux_sym__procAttributesPp_repeat1 2 0 55; SHIFT_REPEAT 4093];
   A 16796 1 true [REDUCE aux_sym__procAttributesPp_repeat1 2 0 55];
   A 16798 2 true [REDUCE aux_sym__procAttributesPp_repeat1 2 0 55; SHIFT_REPEAT 12561];
   A 16801 2 true [REDUCE aux_sym__procAttributesPp_repeat1 2 0 55; SHIFT_REPEAT 4468];
   A 16804 2 true [REDUCE aux_sym__procAttributesPp_repeat1 2 0 55; SHIFT_REPEAT 12824];
   A 16807 2 true [REDUCE aux_sym__procAttributesPp_repeat1 2 0 55; SHIFT_REPEAT 4077];
   A 16810 2 true [REDUCE aux_sym__procAttributesPp_repeat1 2 0 55; SHIFT_REPEAT 3867];
   A 16813 2 true [REDUCE aux_sym__procAttributesPp_repeat1 2 0 55; SHIFT_REPEAT 4478];
   A 16816 2 true [REDUCE aux_sym__procAttributesPp_repeat1 2 0 55; SHIFT_REPEAT 14986];
   A 16819 2 true [REDUCE aux_sym_recInitializer_repeat1 2 0 0; SHIFT_REPEAT 3520];
   A 16822 2 false [REDUCE aux_sym_recInitializer_repeat1 2 0 0; SHIFT_REPEAT 3069];
   A 16825 2 true [REDUCE aux_sym_recInitializer_repeat1 2 0 0; SHIFT_REPEAT 7100];
   A 16828 2 true [REDUCE aux_sym_recInitializer_repeat1 2 0 0; SHIFT_REPEAT 12442];
   A 16831 2 false [REDUCE aux_sym_recInitializer_repeat1 2 0 0; SHIFT_REPEAT 8129];
   A 16834 2 true [REDUCE aux_sym_recInitializer_repeat1 2 0 0; SHIFT_REPEAT 8129];
   A 16837 2 false [REDUCE aux_sym_recInitializer_repeat1 2 0 0; SHIFT_REPEAT 4389];
   A 16840 2 true [REDUCE aux_sym_recInitializer_repeat1 2 0 0; SHIFT_REPEAT 4389];
   A 16843 2 true [REDUCE aux_sym_recInitializer_repeat1 2 0 0; SHIFT_REPEAT 8464];
   A 16846 2 true [REDUCE aux_sym_recInitializer_repeat1 2 0 0; SHIFT_REPEAT 8454];
   A 16849 2 true [REDUCE aux_sym_recInitializer_repeat1 2 0 0; SHIFT_REPEAT 7875];
   A 16852 2 true [REDUCE aux_sym_recInitializer_repeat1 2 0 0; SHIFT_REPEAT 6200];
   A 16855 2 true [REDUCE aux_sym_recInitializer_repeat1 2 0 0; SHIFT_REPEAT 5223];
   A 16858 2 true [REDUCE aux_sym_recInitializer_repeat1 2 0 0; SHIFT_REPEAT 7881];
   A 16861 2 true [REDUCE aux_sym_recInitializer_repeat1 2 0 0; SHIFT_REPEAT 15452];
   A 16864 1 true [SHIFT 14565]; A 16866 1 true [SHIFT 2282]; A 16868 1 true [SHIFT 5060];
   A 16870 1 true [SHIFT 15376]; A 16872 1 true [SHIFT 14801]; A 16874 1 true [SHIFT 2652];
   A 16876 1 true [SHIFT 4908]; A 16878 1 true [SHIFT 14877]; A 16880 1 true [SHIFT 6077];
   A 16882 1 true [SHIFT 15305]; A 16884 1 true [REDUCE sym_exprConditional 6 0 191];
   A 16886 1 false [REDUCE sym_exprConditional 6 0 191]; A 16888 1 true [SHIFT 2553];
   A 16890 1 true [SHIFT 4944]; A 16892 1 true [SHIFT 15232]; A 16894 1 true [SHIFT 15361];
   A 16896 1 true [SHIFT 1153]; A 16898 1 true [SHIFT 5002]; A 16900 1 true [SHIFT 15929];
   A 16902 1 true [REDUCE sym_exprAs 3 0 25]; A 16904 1 false [REDUCE sym_exprAs 3 0 25];
   A 16906 1 true [SHIFT 13876]; A 16908 1 true [SHIFT 4844]; A 16910 1 true [SHIFT 15209];
   A 16912 1 true [REDUCE sym_exprBinary 3 0 25];
   A 16914 1 false [REDUCE sym_exprBinary 3 0 25]; A 16916 1 true [REDUCE sym_declClass 2 0 0];
   A 16918 1 false [SHIFT 10616]; A 16920 1 true [SHIFT 4136]; A 16922 1 true [SHIFT 3901];
   A 16924 1 true [SHIFT 15590];
   A 16926 2 true [REDUCE aux_sym_arrInitializer_repeat1 2 0 0; SHIFT_REPEAT 3520];
   A 16929 2 false [REDUCE aux_sym_arrInitializer_repeat1 2 0 0; SHIFT_REPEAT 3069];
   A 16932 2 true [REDUCE aux_sym_arrInitializer_repeat1 2 0 0; SHIFT_REPEAT 7100];
   A 16935 2 true [REDUCE aux_sym_arrInitializer_repeat1 2 0 0; SHIFT_REPEAT 12442];
   A 16938 2 false [REDUCE aux_sym_arrInitializer_repeat1 2 0 0; SHIFT_REPEAT 8129];
   A 16941 2 true [REDUCE aux_sym_arrInitializer_repeat1 2 0 0; SHIFT_REPEAT 8129];
   A 16944 2 false [REDUCE aux_sym_arrInitializer_repeat1 2 0 0; SHIFT_REPEAT 4776];
   A 16947 2 true [REDUCE aux_sym_arrInitializer_repeat1 2 0 0; SHIFT_REPEAT 4776];
   A 16950 2 true [REDUCE aux_sym_arrInitializer_repeat1 2 0 0; SHIFT_REPEAT 7786];
   A 16953 2 true [REDUCE aux_sym_arrInitializer_repeat1 2 0 0; SHIFT_REPEAT 7875];
   A 16956 2 true [REDUCE aux_sym_arrInitializer_repeat1 2 0 0; SHIFT_REPEAT 6200];
   A 16959 2 true [REDUCE aux_sym_arrInitializer_repeat1 2 0 0; SHIFT_REPEAT 5528];
   A 16962 2 true [REDUCE aux_sym_arrInitializer_repeat1 2 0 0; SHIFT_REPEAT 7881];
   A 16965 2 true [REDUCE aux_sym_arrInitializer_repeat1 2 0 0; SHIFT_REPEAT 15452];
   A 16968 1 true [REDUCE sym_exprDot 3 0 25]; A 16970 1 false [REDUCE sym_exprDot 3 0 25];
   A 16972 1 true [REDUCE sym__ref 1 0 0]; A 16974 1 true [REDUCE sym__typeref 1 0 0];
   A 16976 1 false [REDUCE sym__ref 1 0 0];
   A 16978 2 true [REDUCE sym__ref 1 0 0; REDUCE sym__typeref 1 0 0];
   A 16981 2 false [REDUCE sym__ref 1 0 0; REDUCE sym__typeref 1 0 0];
   A 16984 1 true [SHIFT 2722]; A 16986 1 true [SHIFT 4879]; A 16988 1 true [SHIFT 14286];
   A 16990 1 true [SHIFT 1265]; A 16992 1 true [SHIFT 4741]; A 16994 1 true [SHIFT 15065];
   A 16996 1 true [SHIFT 2319]; A 16998 1 true [SHIFT 5047]; A 17000 1 true [SHIFT 14513];
   A 17002 1 true [SHIFT 5892]; A 17004 1 true [SHIFT 2634]; A 17006 1 true [SHIFT 5018];
   A 17008 1 true [SHIFT 15523]; A 17010 1 true [SHIFT 9152]; A 17012 1 true [SHIFT 15278];
   A 17014 1 true [REDUCE sym_exprBinary 4 0 90];
   A 17016 1 false [REDUCE sym_exprBinary 4 0 90]; A 17018 1 true [SHIFT 2701];
   A 17020 1 true [SHIFT 4467]; A 17022 1 true [SHIFT 14794]; A 17024 1 true [SHIFT 2296];
   A 17026 1 true [SHIFT 5075]; A 17028 1 true [SHIFT 14236];
   A 17030 1 true [REDUCE sym_exprUnary 2 0 14]; A 17032 1 false [REDUCE sym_exprUnary 2 0 14];
   A 17034 1 true [SHIFT 14804]; A 17036 1 true [REDUCE sym__expr 1 0 0];
   A 17038 1 true [SHIFT 3929]; A 17040 1 false [SHIFT 3731]; A 17042 1 true [SHIFT 10158];
   A 17044 1 false [SHIFT 3106]; A 17046 1 false [REDUCE sym__expr 1 0 0];
   A 17048 1 true [SHIFT 2650]; A 17050 1 true [SHIFT 5032]; A 17052 1 true [SHIFT 14911];
   A 17054 1 true [SHIFT 2474]; A 17056 1 true [SHIFT 4982]; A 17058 1 true [SHIFT 15589];
   A 17060 1 true [SHIFT 1396]; A 17062 1 true [SHIFT 8487]; A 17064 1 true [SHIFT 8486];
   A 17066 1 true [SHIFT 2684]; A 17068 1 true [SHIFT 4809]; A 17070 1 true [SHIFT 15631];
   A 17072 1 true [SHIFT 14173]; A 17074 1 true [SHIFT 8885]; A 17076 1 true [SHIFT 12387];
   A 17078 1 true [SHIFT 8890]; A 17080 1 true [REDUCE sym_lambda 4 0 76];
   A 17082 1 false [REDUCE sym_lambda 4 0 76]; A 17084 1 true [SHIFT 7550];
   A 17086 1 true [SHIFT 7357]; A 17088 1 true [SHIFT 7174]; A 17090 1 true [SHIFT 7178];
   A 17092 1 true [SHIFT 7181]; A 17094 1 true [REDUCE sym_exprCall 4 0 80];
   A 17096 1 false [REDUCE sym_exprCall 4 0 80]; A 17098 1 true [SHIFT 7665];
   A 17100 1 true [SHIFT 7671]; A 17102 1 true [SHIFT 7676]; A 17104 1 true [SHIFT 15377];
   A 17106 1 true [REDUCE sym_exprBrackets 4 0 0];
   A 17108 1 false [REDUCE sym_exprBrackets 4 0 0]; A 17110 1 true [SHIFT 8336];
   A 17112 1 true [SHIFT 8223]; A 17114 1 true [REDUCE sym_exprSubscript 4 0 60];
   A 17116 1 false [REDUCE sym_exprSubscript 4 0 60];
   A 17118 1 true [REDUCE sym_exprCall 4 0 60]; A 17120 1 false [REDUCE sym_exprCall 4 0 60];
   A 17122 1 true [REDUCE sym_exprTpl 4 1 60]; A 17124 1 false [REDUCE sym_exprTpl 4 1 60];
   A 17126 1 true [REDUCE sym_lambda 5 0 136]; A 17128 1 false [REDUCE sym_lambda 5 0 136];
   A 17130 1 true [SHIFT 15586]; A 17132 1 true [SHIFT 4742]; A 17134 1 true [SHIFT 12878];
   A 17136 1 true [SHIFT 3411]; A 17138 1 true [SHIFT 4103]; A 17140 1 true [SHIFT 4007];
   A 17142 1 true [SHIFT 4200]; A 17144 1 true [SHIFT 15442]; A 17146 1 true [SHIFT 7521];
   A 17148 1 true [SHIFT 7527]; A 17150 1 true [SHIFT 7534];
   A 17152 1 true [REDUCE sym_lambda 5 0 138]; A 17154 1 false [REDUCE sym_lambda 5 0 138];
   A 17156 1 true [REDUCE sym_exprTpl 5 1 143]; A 17158 1 false [REDUCE sym_exprTpl 5 1 143];
   A 17160 1 true [SHIFT 15528]; A 17162 1 true [SHIFT 9325]; A 17164 1 true [SHIFT 9330];
   A 17166 1 true [SHIFT 9333]; A 17168 1 true [SHIFT 7840];
   A 17170 1 true [REDUCE sym_lambda 6 0 190]; A 17172 1 false [REDUCE sym_lambda 6 0 190];
   A 17174 1 true [SHIFT 8162]; A 17176 1 true [SHIFT 14263]; A 17178 1 false [SHIFT 3116];
   A 17180 1 true [SHIFT 15032]; A 17182 1 true [SHIFT 7590]; A 17184 1 true [SHIFT 15109];
   A 17186 1 true [SHIFT 8296]; A 17188 1 true [SHIFT 8379]; A 17190 1 true [SHIFT 6008];
   A 17192 1 true [SHIFT 15296]; A 17194 1 true [SHIFT 8985]; A 17196 1 true [SHIFT 8997];
   A 17198 1 true [SHIFT 14882]; A 17200 1 false [SHIFT 3135]; A 17202 1 true [SHIFT 15321];
   A 17204 1 true [REDUCE sym_procAttribute 1 0 0]; A 17206 1 true [SHIFT 15158];
   A 17208 1 true [SHIFT 7608]; A 17210 1 true [SHIFT 14121]; A 17212 1 true [SHIFT 9007];
   A 17214 1 true [SHIFT 8386]; A 17216 1 true [SHIFT 8306]; A 17218 1 true [SHIFT 8206];
   A 17220 1 true [SHIFT 8394]; A 17222 1 true [SHIFT 9108]; A 17224 1 true [SHIFT 7611];
   A 17226 1 true [SHIFT 14448]; A 17228 1 true [SHIFT 6067]; A 17230 1 true [SHIFT 15220];
   A 17232 1 true [SHIFT 7048]; A 17234 1 true [SHIFT 7056]; A 17236 1 true [SHIFT 9114];
   A 17238 1 true [SHIFT 7044]; A 17240 1 true [REDUCE sym_asmTr 2 0 0];
   A 17242 1 false [REDUCE sym_asmTr 2 0 0]; A 17244 1 true [SHIFT 9120];
   A 17246 1 false [SHIFT 3111]; A 17248 1 true [SHIFT 14855]; A 17250 1 true [SHIFT 14702];
   A 17252 1 true [SHIFT 8172]; A 17254 1 true [REDUCE sym_asmTr 3 0 0];
   A 17256 1 false [REDUCE sym_asmTr 3 0 0]; A 17258 1 true [SHIFT 9316];
   A 17260 1 true [SHIFT 9363]; A 17262 1 true [SHIFT 9214]; A 17264 1 true [SHIFT 9047];
   A 17266 1 true [SHIFT 15500]; A 17268 1 true [SHIFT 9219]; A 17270 1 false [SHIFT 3158];
   A 17272 1 true [SHIFT 15401]; A 17274 1 true [SHIFT 9225]; A 17276 1 true [SHIFT 8309];
   A 17278 1 true [SHIFT 15723]; A 17280 1 true [SHIFT 7630]; A 17282 1 true [SHIFT 7636];
   A 17284 1 true [SHIFT 7645]; A 17286 1 true [SHIFT 15867]; A 17288 1 true [SHIFT 8721];
   A 17290 1 true [SHIFT 9531]; A 17292 1 true [SHIFT 7431]; A 17294 1 true [SHIFT 8215];
   A 17296 1 true [SHIFT 14412]; A 17298 1 true [SHIFT 7113]; A 17300 1 true [SHIFT 7117];
   A 17302 1 false [SHIFT 3122]; A 17304 1 true [SHIFT 15053]; A 17306 1 true [SHIFT 9560];
   A 17308 1 true [SHIFT 7120]; A 17310 1 false [SHIFT 3144]; A 17312 1 true [SHIFT 15095];
   A 17314 1 true [SHIFT 9576]; A 17316 1 true [SHIFT 7438]; A 17318 1 true [SHIFT 7841];
   A 17320 1 true [SHIFT 8730]; A 17322 1 true [SHIFT 7871]; A 17324 1 true [SHIFT 9251];
   A 17326 1 true [REDUCE sym_literalNumber 1 0 0];
   A 17328 1 false [REDUCE sym_literalNumber 1 0 0]; A 17330 1 true [SHIFT 7445];
   A 17332 1 true [SHIFT 8673]; A 17334 1 true [SHIFT 8689]; A 17336 1 true [SHIFT 9259];
   A 17338 1 true [SHIFT 8697]; A 17340 1 true [REDUCE sym__ref 1 0 3];
   A 17342 1 false [REDUCE sym__ref 1 0 3]; A 17344 1 true [SHIFT 15250];
   A 17346 1 true [REDUCE sym_inherited 1 0 0]; A 17348 1 false [REDUCE sym_inherited 1 0 0];
   A 17350 1 true [SHIFT 3636]; A 17352 1 true [SHIFT 14966]; A 17354 1 true [SHIFT 9266];
   A 17356 1 true [REDUCE sym_lambda 2 0 13]; A 17358 1 false [REDUCE sym_lambda 2 0 13];
   A 17360 1 true [REDUCE sym_inherited 2 0 0]; A 17362 1 false [REDUCE sym_inherited 2 0 0];
   A 17364 1 true [SHIFT 7256]; A 17366 1 true [SHIFT 7272]; A 17368 1 true [SHIFT 7285];
   A 17370 1 true [REDUCE sym_exprDeref 2 0 16]; A 17372 1 false [REDUCE sym_exprDeref 2 0 16];
   A 17374 1 true [SHIFT 8034]; A 17376 1 true [SHIFT 7702];
   A 17378 1 true [REDUCE sym_lambda 3 0 35]; A 17380 1 false [REDUCE sym_lambda 3 0 35];
   A 17382 1 true [SHIFT 6238]; A 17384 1 true [REDUCE sym_lambda 3 0 37];
   A 17386 1 false [REDUCE sym_lambda 3 0 37]; A 17388 1 true [SHIFT 5881];
   A 17390 1 true [SHIFT 7744]; A 17392 1 true [SHIFT 15293]; A 17394 1 true [SHIFT 5957];
   A 17396 1 true [REDUCE sym_exprCall 3 0 40]; A 17398 1 false [REDUCE sym_exprCall 3 0 40];
   A 17400 1 true [SHIFT 5961]; A 17402 1 true [SHIFT 8735]; A 17404 1 true [SHIFT 8952];
   A 17406 1 true [REDUCE sym_exprBrackets 3 0 0];
   A 17408 1 false [REDUCE sym_exprBrackets 3 0 0];
   A 17410 1 true [REDUCE sym_exprParens 3 0 0]; A 17412 1 false [REDUCE sym_exprParens 3 0 0];
   A 17414 1 true [SHIFT 7733]; A 17416 1 true [SHIFT 7869]; A 17418 1 false [SHIFT 3128];
   A 17420 1 true [SHIFT 15287]; A 17422 1 true [SHIFT 9191]; A 17424 1 true [SHIFT 8618];
   A 17426 1 true [SHIFT 8515]; A 17428 1 true [SHIFT 8490]; A 17430 1 true [SHIFT 8447];
   A 17432 1 false [SHIFT 3153]; A 17434 1 true [SHIFT 15337]; A 17436 1 true [SHIFT 15073];
   A 17438 1 true [SHIFT 7874]; A 17440 1 true [SHIFT 9215]; A 17442 1 true [SHIFT 7494];
   A 17444 1 true [SHIFT 7498]; A 17446 1 true [SHIFT 15706]; A 17448 1 true [SHIFT 7555];
   A 17450 1 true [SHIFT 8319]; A 17452 1 true [SHIFT 9244]; A 17454 1 true [SHIFT 7230];
   A 17456 1 true [SHIFT 7234]; A 17458 1 true [SHIFT 7237]; A 17460 1 true [SHIFT 8643];
   A 17462 1 true [SHIFT 9062]; A 17464 1 true [SHIFT 9078]; A 17466 1 true [SHIFT 9107];
   A 17468 1 true [SHIFT 7704]; A 17470 1 true [SHIFT 7708]; A 17472 1 true [SHIFT 16001];
   A 17474 1 true [SHIFT 7713]; A 17476 1 true [SHIFT 8839]; A 17478 1 true [SHIFT 8856];
   A 17480 1 true [SHIFT 8888]; A 17482 1 true [SHIFT 7883]; A 17484 1 true [SHIFT 14757];
   A 17486 1 true [SHIFT 8021]; A 17488 1 true [SHIFT 8049]; A 17490 1 true [SHIFT 8077];
   A 17492 1 true [SHIFT 6321]; A 17494 1 true [SHIFT 12459]; A 17496 1 true [SHIFT 8934];
   A 17498 1 true [SHIFT 15264]; A 17500 1 true [SHIFT 8944]; A 17502 1 true [SHIFT 8959];
   A 17504 1 true [SHIFT 8522]; A 17506 1 true [SHIFT 14825]; A 17508 1 true [SHIFT 8528];
   A 17510 1 true [SHIFT 8540]; A 17512 1 true [SHIFT 15602]; A 17514 1 true [SHIFT 8329];
   A 17516 1 true [SHIFT 8057]; A 17518 1 true [SHIFT 14401]; A 17520 1 true [SHIFT 7955];
   A 17522 1 true [SHIFT 8045]; A 17524 1 true [SHIFT 14943]; A 17526 1 true [SHIFT 8480];
   A 17528 1 true [SHIFT 15314]; A 17530 1 true [SHIFT 3644]; A 17532 1 true [SHIFT 15614];
   A 17534 1 true [SHIFT 3657]; A 17536 1 true [SHIFT 15981]; A 17538 1 false [SHIFT 3156];
   A 17540 1 true [SHIFT 15345]; A 17542 1 true [SHIFT 8500]; A 17544 1 true [SHIFT 14316];
   A 17546 1 true [SHIFT 3732]; A 17548 1 true [REDUCE sym_exprCall 3 0 44];
   A 17550 1 false [REDUCE sym_exprCall 3 0 44]; A 17552 1 true [SHIFT 14534];
   A 17554 1 true [SHIFT 7862]; A 17556 1 true [SHIFT 8513]; A 17558 1 true [SHIFT 7900];
   A 17560 1 true [SHIFT 7801]; A 17562 1 true [SHIFT 7578]; A 17564 1 true [SHIFT 7585];
   A 17566 1 true [SHIFT 15651]; A 17568 1 true [SHIFT 7588]; A 17570 1 true [SHIFT 8338];
   A 17572 1 true [SHIFT 8286]; A 17574 1 true [SHIFT 8231]; A 17576 1 true [SHIFT 9376];
   A 17578 1 true [SHIFT 8713]; A 17580 1 true [SHIFT 8724]; A 17582 1 true [SHIFT 8734];
   A 17584 1 true [SHIFT 8482]; A 17586 1 true [SHIFT 8183]; A 17588 1 true [SHIFT 8211];
   A 17590 1 true [REDUCE sym_lambda 4 0 74]; A 17592 1 false [REDUCE sym_lambda 4 0 74];
   A 17594 1 true [SHIFT 8796]; A 17596 1 true [SHIFT 8813]; A 17598 1 true [SHIFT 8816];
   A 17600 1 false [SHIFT 3157]; A 17602 1 true [SHIFT 15353]; A 17604 1 true [SHIFT 9027];
   A 17606 1 true [SHIFT 7002]; A 17608 1 true [SHIFT 7007]; A 17610 1 true [SHIFT 7026];
   A 17612 1 true [SHIFT 8870]; A 17614 1 true [SHIFT 9032]; A 17616 1 true [SHIFT 7531];
   A 17618 2 true [REDUCE aux_sym_caseLabel_repeat1 2 0 0; SHIFT_REPEAT 3722];
   A 17621 2 false [REDUCE aux_sym_caseLabel_repeat1 2 0 0; SHIFT_REPEAT 5016];
   A 17624 2 true [REDUCE aux_sym_caseLabel_repeat1 2 0 0; SHIFT_REPEAT 7201];
   A 17627 2 true [REDUCE aux_sym_caseLabel_repeat1 2 0 0; SHIFT_REPEAT 12082];
   A 17630 2 false [REDUCE aux_sym_caseLabel_repeat1 2 0 0; SHIFT_REPEAT 8466];
   A 17633 2 true [REDUCE aux_sym_caseLabel_repeat1 2 0 0; SHIFT_REPEAT 8466];
   A 17636 2 false [REDUCE aux_sym_caseLabel_repeat1 2 0 0; SHIFT_REPEAT 4346];
   A 17639 2 true [REDUCE aux_sym_caseLabel_repeat1 2 0 0; SHIFT_REPEAT 4346];
   A 17642 2 true [REDUCE aux_sym_caseLabel_repeat1 2 0 0; SHIFT_REPEAT 7990];
   A 17645 2 true [REDUCE aux_sym_caseLabel_repeat1 2 0 0; SHIFT_REPEAT 8004];
   A 17648 2 true [REDUCE aux_sym_caseLabel_repeat1 2 0 0; SHIFT_REPEAT 6323];
   A 17651 2 true [REDUCE aux_sym_caseLabel_repeat1 2 0 0; SHIFT_REPEAT 5465];
   A 17654 2 true [REDUCE aux_sym_caseLabel_repeat1 2 0 0; SHIFT_REPEAT 8005];
   A 17657 2 true [REDUCE aux_sym_caseLabel_repeat1 2 0 0; SHIFT_REPEAT 14734];
   A 17660 2 true [REDUCE aux_sym_declArray_repeat1 2 0 0; SHIFT_REPEAT 3722];
   A 17663 2 false [REDUCE aux_sym_declArray_repeat1 2 0 0; SHIFT_REPEAT 5016];
   A 17666 2 true [REDUCE aux_sym_declArray_repeat1 2 0 0; SHIFT_REPEAT 7201];
   A 17669 2 true [REDUCE aux_sym_declArray_repeat1 2 0 0; SHIFT_REPEAT 12082];
   A 17672 2 false [REDUCE aux_sym_declArray_repeat1 2 0 0; SHIFT_REPEAT 8466];
   A 17675 2 true [REDUCE aux_sym_declArray_repeat1 2 0 0; SHIFT_REPEAT 8466];
   A 17678 2 false [REDUCE aux_sym_declArray_repeat1 2 0 0; SHIFT_REPEAT 4346];
   A 17681 2 true [REDUCE aux_sym_declArray_repeat1 2 0 0; SHIFT_REPEAT 4346];
   A 17684 2 true [REDUCE aux_sym_declArray_repeat1 2 0 0; SHIFT_REPEAT 7990];
   A 17687 2 true [REDUCE aux_sym_declArray_repeat1 2 0 0; SHIFT_REPEAT 8004];
   A 17690 2 true [REDUCE aux_sym_declArray_repeat1 2 0 0; SHIFT_REPEAT 6323];
   A 17693 2 true [REDUCE aux_sym_declArray_repeat1 2 0 0; SHIFT_REPEAT 5465];
   A 17696 2 true [REDUCE aux_sym_declArray_repeat1 2 0 0; SHIFT_REPEAT 8005];
   A 17699 2 true [REDUCE aux_sym_declArray_repeat1 2 0 0; SHIFT_REPEAT 14734];
   A 17702 1 true [SHIFT 11105]; A 17704 1 true [SHIFT 8659]; A 17706 1 true [SHIFT 8862];
   A 17708 1 true [SHIFT 15285]; A 17710 1 true [SHIFT 15269]; A 17712 1 true [SHIFT 11351];
   A 17714 1 true [SHIFT 8699]; A 17716 1 true [SHIFT 14828]; A 17718 1 true [SHIFT 5096];
   A 17720 1 true [SHIFT 8625]; A 17722 1 true [SHIFT 12484]; A 17724 1 true [SHIFT 8634];
   A 17726 2 true [REDUCE aux_sym_literalString_repeat1 2 0 0; SHIFT_REPEAT 3832];
   A 17729 2 true [REDUCE aux_sym_literalString_repeat1 2 0 0; SHIFT_REPEAT 12059];
   A 17732 1 true [SHIFT 3832]; A 17734 1 true [SHIFT 13643]; A 17736 1 true [SHIFT 1288];
   A 17738 1 true [SHIFT 11125]; A 17740 1 true [SHIFT 8662]; A 17742 1 true [SHIFT 13957];
   A 17744 1 true [SHIFT 6871]; A 17746 1 true [SHIFT 13241]; A 17748 1 true [SHIFT 8609];
   A 17750 1 true [SHIFT 11258]; A 17752 1 true [SHIFT 8617]; A 17754 1 true [SHIFT 8916];
   A 17756 1 true [REDUCE sym_declClass 3 0 0]; A 17758 1 false [SHIFT 10640];
   A 17760 1 true [SHIFT 4510]; A 17762 1 true [SHIFT 14738]; A 17764 1 true [SHIFT 2980];
   A 17766 1 true [SHIFT 8640]; A 17768 1 true [SHIFT 8843]; A 17770 1 true [SHIFT 6434];
   A 17772 1 true [SHIFT 11041]; A 17774 1 true [SHIFT 8655]; A 17776 1 true [SHIFT 15856];
   A 17778 1 true [SHIFT 6215]; A 17780 1 true [SHIFT 5856]; A 17782 1 true [SHIFT 10835];
   A 17784 1 true [SHIFT 8651]; A 17786 1 true [SHIFT 8857]; A 17788 1 true [SHIFT 14380];
   A 17790 1 true [REDUCE sym_declIntf 1 0 0]; A 17792 1 true [SHIFT 3981];
   A 17794 1 false [SHIFT 10627]; A 17796 1 true [SHIFT 14612]; A 17798 1 true [SHIFT 6376];
   A 17800 1 true [SHIFT 4928]; A 17802 1 true [SHIFT 8605];
   A 17804 2 true [REDUCE aux_sym__procAttribute_repeat1 2 0 55; SHIFT_REPEAT 12561];
   A 17807 2 true [REDUCE aux_sym__procAttribute_repeat1 2 0 55; SHIFT_REPEAT 4742];
   A 17810 2 true [REDUCE aux_sym__procAttribute_repeat1 2 0 55; SHIFT_REPEAT 12878];
   A 17813 2 true [REDUCE aux_sym__procAttribute_repeat1 2 0 55; SHIFT_REPEAT 3411];
   A 17816 2 true [REDUCE aux_sym__procAttribute_repeat1 2 0 55; SHIFT_REPEAT 4103];
   A 17819 2 true [REDUCE aux_sym__procAttribute_repeat1 2 0 55; SHIFT_REPEAT 4007];
   A 17822 2 true [REDUCE aux_sym__procAttribute_repeat1 2 0 55; SHIFT_REPEAT 4200];
   A 17825 2 true [REDUCE aux_sym__procAttribute_repeat1 2 0 55; SHIFT_REPEAT 15442];
   A 17828 1 true [SHIFT 12782]; A 17830 1 true [SHIFT 8631]; A 17832 1 true [SHIFT 8833];
   A 17834 1 true [SHIFT 5968]; A 17836 1 true [SHIFT 4723]; A 17838 1 true [SHIFT 8621];
   A 17840 1 true [SHIFT 8818]; A 17842 1 true [SHIFT 13473]; A 17844 1 true [SHIFT 8606];
   A 17846 1 true [SHIFT 8787]; A 17848 1 true [SHIFT 6597]; A 17850 1 true [SHIFT 3017];
   A 17852 1 true [SHIFT 8645]; A 17854 1 true [SHIFT 1359]; A 17856 1 true [SHIFT 6537];
   A 17858 1 true [REDUCE sym_declIntf 2 0 0]; A 17860 1 false [SHIFT 10638];
   A 17862 1 true [SHIFT 15479]; A 17864 1 true [SHIFT 14700];
   A 17866 1 true [REDUCE sym_declIntf 6 0 279]; A 17868 1 true [SHIFT 14704];
   A 17870 2 true [REDUCE aux_sym_rttiAttributes_repeat1 2 0 0; SHIFT_REPEAT 3520];
   A 17873 2 false [REDUCE aux_sym_rttiAttributes_repeat1 2 0 0; SHIFT_REPEAT 4736];
   A 17876 2 true [REDUCE aux_sym_rttiAttributes_repeat1 2 0 0; SHIFT_REPEAT 7100];
   A 17879 2 true [REDUCE aux_sym_rttiAttributes_repeat1 2 0 0; SHIFT_REPEAT 12442];
   A 17882 2 false [REDUCE aux_sym_rttiAttributes_repeat1 2 0 0; SHIFT_REPEAT 8129];
   A 17885 2 true [REDUCE aux_sym_rttiAttributes_repeat1 2 0 0; SHIFT_REPEAT 8129];
   A 17888 2 false [REDUCE aux_sym_rttiAttributes_repeat1 2 0 0; SHIFT_REPEAT 4389]
  ].

Definition ts_parse_actions_17891 : list (Z * list TSParseActionEntry) :=
  [
   A 17891 2 true [REDUCE aux_sym_rttiAttributes_repeat1 2 0 0; SHIFT_REPEAT 4389];
   A 17894 2 true [REDUCE aux_sym_rttiAttributes_repeat1 2 0 0; SHIFT_REPEAT 9049];
   A 17897 2 true [REDUCE aux_sym_rttiAttributes_repeat1 2 0 0; SHIFT_REPEAT 7875];
   A 17900 2 true [REDUCE aux_sym_rttiAttributes_repeat1 2 0 0; SHIFT_REPEAT 6200];
   A 17903 2 true [REDUCE aux_sym_rttiAttributes_repeat1 2 0 0; SHIFT_REPEAT 5223];
   A 17906 2 true [REDUCE aux_sym_rttiAttributes_repeat1 2 0 0; SHIFT_REPEAT 7881];
   A 17909 2 true [REDUCE aux_sym_rttiAttributes_repeat1 2 0 0; SHIFT_REPEAT 15452];
   A 17912 1 true [SHIFT 8616]; A 17914 1 true [SHIFT 8658]; A 17916 1 true [SHIFT 14768];
   A 17918 1 true [SHIFT 4362]; A 17920 1 true [SHIFT 4494];
   A 17922 1 true [REDUCE aux_sym__procAttributesPp_repeat1 2 0 54];
   A 17924 1 true [REDUCE sym_declIntf 4 0 209]; A 17926 1 true [SHIFT 15196];
   A 17928 1 true [REDUCE sym_declIntf 4 0 208]; A 17930 1 true [SHIFT 15241];
   A 17932 1 true [SHIFT 15665];
   A 17934 1 true [REDUCE aux_sym__procAttributesPp_repeat1 1 0 22];
   A 17936 1 true [REDUCE sym_typeref 3 0 0]; A 17938 1 true [REDUCE sym_typeref 4 0 64];
   A 17940 1 true [SHIFT 4017]; A 17942 1 true [SHIFT 12291];
   A 17944 2 true [REDUCE aux_sym_rttiAttributes_repeat2 2 0 0; SHIFT_REPEAT 4017];
   A 17947 1 true [SHIFT 8607];
   A 17949 2 true [REDUCE aux_sym_with_repeat1 2 0 45; SHIFT_REPEAT 3520];
   A 17952 2 false [REDUCE aux_sym_with_repeat1 2 0 45; SHIFT_REPEAT 4736];
   A 17955 2 true [REDUCE aux_sym_with_repeat1 2 0 45; SHIFT_REPEAT 7100];
   A 17958 2 true [REDUCE aux_sym_with_repeat1 2 0 45; SHIFT_REPEAT 12442];
   A 17961 2 false [REDUCE aux_sym_with_repeat1 2 0 45; SHIFT_REPEAT 8129];
   A 17964 2 true [REDUCE aux_sym_with_repeat1 2 0 45; SHIFT_REPEAT 8129];
   A 17967 2 false [REDUCE aux_sym_with_repeat1 2 0 45; SHIFT_REPEAT 4776];
   A 17970 2 true [REDUCE aux_sym_with_repeat1 2 0 45; SHIFT_REPEAT 4776];
   A 17973 2 true [REDUCE aux_sym_with_repeat1 2 0 45; SHIFT_REPEAT 7786];
   A 17976 2 true [REDUCE aux_sym_with_repeat1 2 0 45; SHIFT_REPEAT 7875];
   A 17979 2 true [REDUCE aux_sym_with_repeat1 2 0 45; SHIFT_REPEAT 6200];
   A 17982 2 true [REDUCE aux_sym_with_repeat1 2 0 45; SHIFT_REPEAT 5528];
   A 17985 2 true [REDUCE aux_sym_with_repeat1 2 0 45; SHIFT_REPEAT 7881];
   A 17988 2 true [REDUCE aux_sym_with_repeat1 2 0 45; SHIFT_REPEAT 15452];
   A 17991 1 true [SHIFT 4761]; A 17993 1 true [SHIFT 15646]; A 17995 1 true [SHIFT 8613];
   A 17997 1 true [SHIFT 8623]; A 17999 1 true [SHIFT 14143]; A 18001 1 true [SHIFT 8629];
   A 18003 1 true [SHIFT 8632]; A 18005 1 true [SHIFT 15511]; A 18007 1 true [SHIFT 8638];
   A 18009 1 true [SHIFT 8641]; A 18011 1 true [SHIFT 14420]; A 18013 1 true [SHIFT 8648];
   A 18015 1 true [REDUCE sym_declIntf 5 0 250]; A 18017 1 true [SHIFT 14333];
   A 18019 1 true [REDUCE sym_declIntf 5 0 249]; A 18021 1 true [SHIFT 14393];
   A 18023 1 true [SHIFT 8653]; A 18025 1 true [SHIFT 14974]; A 18027 1 true [SHIFT 8657];
   A 18029 1 true [SHIFT 8660]; A 18031 1 true [SHIFT 15299]; A 18033 1 true [SHIFT 8663];
   A 18035 1 true [REDUCE sym_declIntf 3 0 156]; A 18037 1 true [SHIFT 14576];
   A 18039 1 true [SHIFT 15719];
   A 18041 2 true [REDUCE aux_sym_exprArgs_repeat1 2 0 0; SHIFT_REPEAT 3520];
   A 18044 2 false [REDUCE aux_sym_exprArgs_repeat1 2 0 0; SHIFT_REPEAT 4736];
   A 18047 2 true [REDUCE aux_sym_exprArgs_repeat1 2 0 0; SHIFT_REPEAT 7100];
   A 18050 2 true [REDUCE aux_sym_exprArgs_repeat1 2 0 0; SHIFT_REPEAT 12442];
   A 18053 2 false [REDUCE aux_sym_exprArgs_repeat1 2 0 0; SHIFT_REPEAT 8129];
   A 18056 2 true [REDUCE aux_sym_exprArgs_repeat1 2 0 0; SHIFT_REPEAT 8129];
   A 18059 2 false [REDUCE aux_sym_exprArgs_repeat1 2 0 0; SHIFT_REPEAT 4776];
   A 18062 2 true [REDUCE aux_sym_exprArgs_repeat1 2 0 0; SHIFT_REPEAT 4776];
   A 18065 2 true [REDUCE aux_sym_exprArgs_repeat1 2 0 0; SHIFT_REPEAT 7786];
   A 18068 2 true [REDUCE aux_sym_exprArgs_repeat1 2 0 0; SHIFT_REPEAT 7875];
   A 18071 2 true [REDUCE aux_sym_exprArgs_repeat1 2 0 0; SHIFT_REPEAT 6200];
   A 18074 2 true [REDUCE aux_sym_exprArgs_repeat1 2 0 0; SHIFT_REPEAT 5528];
   A 18077 2 true [REDUCE aux_sym_exprArgs_repeat1 2 0 0; SHIFT_REPEAT 7881];
   A 18080 2 true [REDUCE aux_sym_exprArgs_repeat1 2 0 0; SHIFT_REPEAT 13678];
   A 18083 2 true [REDUCE aux_sym_declProp_repeat1 2 0 0; SHIFT_REPEAT 3520];
   A 18086 2 false [REDUCE aux_sym_declProp_repeat1 2 0 0; SHIFT_REPEAT 4736];
   A 18089 2 true [REDUCE aux_sym_declProp_repeat1 2 0 0; SHIFT_REPEAT 7100];
   A 18092 2 true [REDUCE aux_sym_declProp_repeat1 2 0 0; SHIFT_REPEAT 12442];
   A 18095 2 false [REDUCE aux_sym_declProp_repeat1 2 0 0; SHIFT_REPEAT 8129];
   A 18098 2 true [REDUCE aux_sym_declProp_repeat1 2 0 0; SHIFT_REPEAT 8129];
   A 18101 2 false [REDUCE aux_sym_declProp_repeat1 2 0 0; SHIFT_REPEAT 4776];
   A 18104 2 true [REDUCE aux_sym_declProp_repeat1 2 0 0; SHIFT_REPEAT 4776];
   A 18107 2 true [REDUCE aux_sym_declProp_repeat1 2 0 0; SHIFT_REPEAT 7786];
   A 18110 2 true [REDUCE aux_sym_declProp_repeat1 2 0 0; SHIFT_REPEAT 7875];
   A 18113 2 true [REDUCE aux_sym_declProp_repeat1 2 0 0; SHIFT_REPEAT 6200];
   A 18116 2 true [REDUCE aux_sym_declProp_repeat1 2 0 0; SHIFT_REPEAT 5528];
   A 18119 2 true [REDUCE aux_sym_declProp_repeat1 2 0 0; SHIFT_REPEAT 7881];
   A 18122 2 true [REDUCE aux_sym_declProp_repeat1 2 0 0; SHIFT_REPEAT 15452];
   A 18125 1 true [SHIFT 4718]; A 18127 1 true [SHIFT 7572]; A 18129 1 true [SHIFT 4720];
   A 18131 1 true [SHIFT 7447]; A 18133 1 true [SHIFT 4489]; A 18135 1 true [SHIFT 4722];
   A 18137 1 true [SHIFT 9246]; A 18139 1 true [SHIFT 7939];
   A 18141 1 true [REDUCE sym_declClass 8 0 303]; A 18143 1 true [SHIFT 14829];
   A 18145 1 true [SHIFT 4724]; A 18147 1 true [SHIFT 8362]; A 18149 1 true [SHIFT 4725];
   A 18151 1 true [SHIFT 7973]; A 18153 1 true [SHIFT 4726];
   A 18155 1 true [REDUCE sym_declClass 8 0 304]; A 18157 1 true [SHIFT 14837];
   A 18159 1 true [SHIFT 8395]; A 18161 1 true [SHIFT 4727]; A 18163 1 true [SHIFT 6749];
   A 18165 1 true [SHIFT 4730]; A 18167 1 true [SHIFT 8423]; A 18169 1 true [SHIFT 4731];
   A 18171 1 true [SHIFT 7277]; A 18173 1 true [SHIFT 4732]; A 18175 1 true [SHIFT 7051];
   A 18177 1 true [REDUCE sym_declClass 9 0 306]; A 18179 1 true [SHIFT 14881];
   A 18181 1 true [SHIFT 4733]; A 18183 1 true [SHIFT 7410]; A 18185 1 true [SHIFT 4451];
   A 18187 1 true [REDUCE sym__exprIsNot 2 0 0]; A 18189 1 false [REDUCE sym__exprIsNot 2 0 0];
   A 18191 1 true [SHIFT 4502]; A 18193 1 true [SHIFT 8015]; A 18195 1 true [SHIFT 8178];
   A 18197 1 true [SHIFT 4602]; A 18199 1 true [SHIFT 4704]; A 18201 1 true [SHIFT 14982];
   A 18203 1 true [SHIFT 14957]; A 18205 1 true [SHIFT 4515]; A 18207 1 true [SHIFT 8686];
   A 18209 1 true [SHIFT 8365]; A 18211 1 true [SHIFT 4532]; A 18213 1 true [SHIFT 8043];
   A 18215 1 true [SHIFT 4358]; A 18217 1 true [SHIFT 4547]; A 18219 1 true [SHIFT 8268];
   A 18221 1 true [SHIFT 7863]; A 18223 1 true [SHIFT 14932];
   A 18225 2 true [REDUCE aux_sym__procAttributeNoExt_repeat2 2 0 55; SHIFT_REPEAT 12561];
   A 18228 2 true [REDUCE aux_sym__procAttributeNoExt_repeat2 2 0 55; SHIFT_REPEAT 4468];
   A 18231 2 true [REDUCE aux_sym__procAttributeNoExt_repeat2 2 0 55; SHIFT_REPEAT 12824];
   A 18234 2 true [REDUCE aux_sym__procAttributeNoExt_repeat2 2 0 55; SHIFT_REPEAT 4077];
   A 18237 2 true [REDUCE aux_sym__procAttributeNoExt_repeat2 2 0 55; SHIFT_REPEAT 3867];
   A 18240 2 true [REDUCE aux_sym__procAttributeNoExt_repeat2 2 0 55; SHIFT_REPEAT 4478];
   A 18243 2 true [REDUCE aux_sym__procAttributeNoExt_repeat2 2 0 55; SHIFT_REPEAT 14986];
   A 18246 1 true [SHIFT 4556]; A 18248 1 true [SHIFT 8774]; A 18250 1 true [SHIFT 9104];
   A 18252 1 true [SHIFT 9111]; A 18254 1 true [SHIFT 14248];
   A 18256 1 true [REDUCE sym_declClass 4 0 208]; A 18258 1 true [SHIFT 14951];
   A 18260 1 true [REDUCE sym_declClass 4 0 209]; A 18262 1 true [SHIFT 15101];
   A 18264 1 true [REDUCE sym_declIntf 4 0 210]; A 18266 1 true [SHIFT 15191];
   A 18268 1 true [SHIFT 5111]; A 18270 1 true [SHIFT 4573]; A 18272 1 true [SHIFT 8082];
   A 18274 1 true [SHIFT 7472]; A 18276 1 true [SHIFT 4706]; A 18278 1 true [SHIFT 14907];
   A 18280 1 true [SHIFT 4591]; A 18282 1 true [SHIFT 8103]; A 18284 1 true [SHIFT 7853];
   A 18286 1 true [SHIFT 8767]; A 18288 1 true [SHIFT 4612]; A 18290 1 true [SHIFT 8855];
   A 18292 1 true [SHIFT 4433]; A 18294 1 true [SHIFT 4466]; A 18296 1 true [SHIFT 4621];
   A 18298 1 true [SHIFT 8878]; A 18300 1 true [SHIFT 7489]; A 18302 1 true [SHIFT 9346];
   A 18304 1 true [SHIFT 4628]; A 18306 1 true [SHIFT 7763]; A 18308 1 true [SHIFT 4634];
   A 18310 1 true [SHIFT 7347]; A 18312 1 true [SHIFT 9370];
   A 18314 1 true [REDUCE sym_declClass 6 0 279]; A 18316 1 true [SHIFT 14598];
   A 18318 1 true [REDUCE sym_declClass 6 0 280]; A 18320 1 true [SHIFT 14601];
   A 18322 1 true [SHIFT 4646]; A 18324 1 true [SHIFT 8953]; A 18326 1 true [SHIFT 9082];
   A 18328 1 true [SHIFT 9101]; A 18330 1 true [SHIFT 9119]; A 18332 1 true [SHIFT 9122];
   A 18334 1 true [SHIFT 9146]; A 18336 1 true [SHIFT 9149]; A 18338 1 true [SHIFT 4395];
   A 18340 1 true [SHIFT 9153]; A 18342 1 true [SHIFT 9175]; A 18344 1 true [SHIFT 4566];
   A 18346 1 true [SHIFT 4702]; A 18348 1 true [SHIFT 4798]; A 18350 1 true [SHIFT 4800];
   A 18352 1 true [SHIFT 4708]; A 18354 1 true [SHIFT 9050]; A 18356 1 true [SHIFT 9051];
   A 18358 1 true [SHIFT 4656]; A 18360 1 true [SHIFT 8595]; A 18362 1 true [SHIFT 9052];
   A 18364 1 true [SHIFT 9053]; A 18366 1 true [SHIFT 9054]; A 18368 1 true [SHIFT 9055];
   A 18370 1 true [SHIFT 9057]; A 18372 1 true [SHIFT 9059]; A 18374 1 true [SHIFT 8501];
   A 18376 1 true [SHIFT 9378]; A 18378 1 true [SHIFT 7701]; A 18380 1 true [SHIFT 4661];
   A 18382 1 true [SHIFT 7010]; A 18384 1 true [SHIFT 9084]; A 18386 1 true [SHIFT 9085];
   A 18388 1 true [SHIFT 9382]; A 18390 1 true [SHIFT 9092]; A 18392 1 true [SHIFT 9093];
   A 18394 1 true [SHIFT 9094]; A 18396 1 true [SHIFT 9095]; A 18398 1 true [SHIFT 9096];
   A 18400 1 true [SHIFT 9097]; A 18402 1 true [REDUCE sym_declClass 5 0 249];
   A 18404 1 true [SHIFT 14294]; A 18406 1 true [REDUCE sym_declClass 5 0 250];
   A 18408 1 true [SHIFT 14308]; A 18410 1 true [REDUCE sym_declIntf 5 0 251];
   A 18412 1 true [SHIFT 14315]; A 18414 1 true [REDUCE sym_declClass 5 0 252];
   A 18416 1 true [SHIFT 14356]; A 18418 1 true [SHIFT 9025];
   A 18420 1 true [REDUCE sym_declIntf 5 0 253]; A 18422 1 true [SHIFT 14383];
   A 18424 1 true [SHIFT 9156]; A 18426 1 true [SHIFT 9158]; A 18428 1 true [SHIFT 9164];
   A 18430 1 true [SHIFT 9165]; A 18432 1 true [SHIFT 9166]; A 18434 1 true [SHIFT 9167];
   A 18436 1 true [SHIFT 9169]; A 18438 1 true [SHIFT 9170]; A 18440 1 true [SHIFT 4713];
   A 18442 1 true [SHIFT 9199]; A 18444 1 true [SHIFT 9200]; A 18446 1 true [SHIFT 4667];
   A 18448 1 true [SHIFT 8706]; A 18450 1 true [SHIFT 9201]; A 18452 1 true [SHIFT 9202];
   A 18454 1 true [SHIFT 9203]; A 18456 1 true [SHIFT 9204]; A 18458 1 true [SHIFT 9206];
   A 18460 1 true [SHIFT 9207]; A 18462 1 true [REDUCE sym_declIntf 6 0 281];
   A 18464 1 true [SHIFT 14646]; A 18466 1 true [SHIFT 8163]; A 18468 1 true [SHIFT 9262];
   A 18470 1 true [SHIFT 9263]; A 18472 1 true [SHIFT 4673]; A 18474 1 true [SHIFT 7377];
   A 18476 1 true [SHIFT 9268]; A 18478 1 true [SHIFT 9269]; A 18480 1 true [SHIFT 9271];
   A 18482 1 true [SHIFT 9278]; A 18484 1 true [REDUCE sym_declClass 3 0 156];
   A 18486 1 true [SHIFT 15999]; A 18488 1 true [SHIFT 9286]; A 18490 1 true [SHIFT 9287];
   A 18492 1 true [SHIFT 4684]; A 18494 1 true [SHIFT 7078];
   A 18496 1 true [REDUCE sym_declClass 6 0 282]; A 18498 1 true [SHIFT 14651];
   A 18500 1 true [SHIFT 4411]; A 18502 1 true [SHIFT 8071];
   A 18504 1 true [REDUCE sym_declIntf 3 0 157]; A 18506 1 true [SHIFT 14827];
   A 18508 1 true [SHIFT 4715]; A 18510 1 true [REDUCE sym_declIntf 6 0 283];
   A 18512 1 true [SHIFT 14701]; A 18514 1 true [SHIFT 7830]; A 18516 1 true [SHIFT 4692];
   A 18518 1 true [SHIFT 8465]; A 18520 1 true [SHIFT 4703]; A 18522 1 true [SHIFT 7386];
   A 18524 1 true [SHIFT 13463]; A 18526 1 true [SHIFT 13464];
   A 18528 2 true [REDUCE aux_sym_declVar_repeat1 2 0 0; SHIFT_REPEAT 15412];
   A 18531 2 true [REDUCE aux_sym_declVar_repeat1 2 0 0; SHIFT_REPEAT 15429];
   A 18534 1 true [SHIFT 4695]; A 18536 1 true [SHIFT 7145]; A 18538 1 true [SHIFT 4716];
   A 18540 1 true [SHIFT 3426]; A 18542 1 true [REDUCE sym_declIntf 2 0 96];
   A 18544 1 true [SHIFT 14611]; A 18546 1 true [SHIFT 13488]; A 18548 1 true [SHIFT 13523];
   A 18550 1 true [REDUCE sym_declClass 7 0 296]; A 18552 1 true [SHIFT 14771];
   A 18554 1 true [SHIFT 4696]; A 18556 1 true [SHIFT 5843]; A 18558 1 true [SHIFT 4474];
   A 18560 1 true [REDUCE sym_declClass 7 0 297]; A 18562 1 true [SHIFT 14782];
   A 18564 1 true [SHIFT 8600]; A 18566 1 true [SHIFT 7167]; A 18568 1 true [SHIFT 4799];
   A 18570 1 true [REDUCE sym_declClass 7 0 298]; A 18572 1 true [SHIFT 14783];
   A 18574 1 true [REDUCE sym_declIntf 7 0 299]; A 18576 1 true [SHIFT 14788];
   A 18578 1 true [SHIFT 7316]; A 18580 1 true [SHIFT 4698]; A 18582 1 true [SHIFT 8119];
   A 18584 1 true [SHIFT 4699]; A 18586 1 true [SHIFT 7296]; A 18588 1 true [SHIFT 13683];
   A 18590 1 true [SHIFT 13685]; A 18592 1 true [SHIFT 13686]; A 18594 1 true [SHIFT 13695];
   A 18596 1 true [SHIFT 13696]; A 18598 1 true [SHIFT 8586]; A 18600 1 true [SHIFT 13737];
   A 18602 1 true [SHIFT 13738]; A 18604 1 true [SHIFT 13739]; A 18606 1 true [SHIFT 13740];
   A 18608 1 true [SHIFT 13747]; A 18610 1 true [SHIFT 13748]; A 18612 1 true [SHIFT 13768];
   A 18614 1 true [SHIFT 13769]; A 18616 1 true [SHIFT 13770]; A 18618 1 true [SHIFT 13771];
   A 18620 1 true [SHIFT 13778]; A 18622 1 true [SHIFT 13779]; A 18624 1 true [SHIFT 13796];
   A 18626 1 true [SHIFT 13797]; A 18628 1 true [SHIFT 13798]; A 18630 1 true [SHIFT 13799];
   A 18632 1 true [SHIFT 13804]; A 18634 1 true [SHIFT 13805]; A 18636 1 true [SHIFT 13824];
   A 18638 1 true [SHIFT 13825]; A 18640 1 true [SHIFT 13826]; A 18642 1 true [SHIFT 13827];
   A 18644 1 true [SHIFT 13831]; A 18646 1 true [SHIFT 13832]; A 18648 1 true [SHIFT 13848];
   A 18650 1 true [SHIFT 13849]; A 18652 1 true [SHIFT 13850]; A 18654 1 true [SHIFT 13851];
   A 18656 1 true [SHIFT 13858]; A 18658 1 true [SHIFT 13859]; A 18660 1 true [SHIFT 4700];
   A 18662 1 true [SHIFT 7158]; A 18664 1 true [SHIFT 9307]; A 18666 1 true [SHIFT 9313];
   A 18668 1 true [SHIFT 13373]; A 18670 1 true [SHIFT 13453]; A 18672 1 true [SHIFT 491];
   A 18674 1 true [REDUCE aux_sym__procAttribute_repeat1 2 0 54]; A 18676 1 true [SHIFT 12086];
   A 18678 2 true [REDUCE aux_sym_genericArg_repeat1 2 0 0; REDUCE aux_sym_declVar_repeat1 2 0 0];
   A 18681 1 true [REDUCE aux_sym_declVar_repeat1 2 0 0]; A 18683 1 true [SHIFT 13212];
   A 18685 1 true [SHIFT 12222]; A 18687 1 true [SHIFT 13072]; A 18689 1 true [SHIFT 12907];
   A 18691 1 true [SHIFT 14779]; A 18693 1 true [SHIFT 503]; A 18695 1 true [SHIFT 14638];
   A 18697 1 true [SHIFT 14831]; A 18699 1 true [SHIFT 698];
   A 18701 1 true [REDUCE aux_sym_labeledStatement_repeat1 2 0 0];
   A 18703 1 false [REDUCE aux_sym_labeledStatement_repeat1 2 0 0];
   A 18705 2 true [REDUCE aux_sym_labeledStatement_repeat1 2 0 0; SHIFT_REPEAT 14424];
   A 18708 1 true [SHIFT 11071]; A 18710 1 true [SHIFT 11224]; A 18712 1 true [SHIFT 12969];
   A 18714 1 true [REDUCE aux_sym_declVar_repeat1 2 0 3]; A 18716 1 true [SHIFT 15119];
   A 18718 1 true [REDUCE aux_sym__statementsTr_repeat1 1 0 0];
   A 18720 1 false [REDUCE aux_sym__statementsTr_repeat1 1 0 0];
   A 18722 1 true [REDUCE sym__statementsTr 1 0 0]; A 18724 1 true [SHIFT 12341];
   A 18726 1 true [SHIFT 13077];
   A 18728 2 true [REDUCE aux_sym_labeledStatement_repeat1 1 0 0; REDUCE aux_sym__statementsTr_repeat1 1 0 0];
   A 18731 1 true [REDUCE aux_sym_labeledStatement_repeat1 1 0 0];
   A 18733 1 true [REDUCE aux_sym__procAttributeNoExt_repeat2 2 0 54];
   A 18735 1 true [REDUCE sym__ppStatementBlock 3 0 0];
   A 18737 1 false [REDUCE sym__ppStatementBlock 3 0 0];
   A 18739 1 true [REDUCE sym__statementsTr 2 0 0]; A 18741 1 true [SHIFT 11230];
   A 18743 2 true [REDUCE aux_sym_labeledStatement_repeat1 2 0 0; SHIFT_REPEAT 14629];
   A 18746 1 true [SHIFT 11028]; A 18748 1 false [SHIFT 11111]; A 18750 1 true [SHIFT 11226];
   A 18752 1 true [SHIFT 11464]; A 18754 1 true [SHIFT 579]; A 18756 1 true [SHIFT 11093];
   A 18758 1 true [SHIFT 9509]; A 18760 1 true [SHIFT 11410]; A 18762 1 true [SHIFT 12295];
   A 18764 1 true [SHIFT 2011]; A 18766 1 true [SHIFT 8222]; A 18768 1 true [SHIFT 10752];
   A 18770 1 true [SHIFT 12978]; A 18772 1 true [REDUCE sym__ppStatementBlock 2 0 0];
   A 18774 1 false [REDUCE sym__ppStatementBlock 2 0 0];
   A 18776 1 true [REDUCE sym__ppStatementBlock 4 0 0];
   A 18778 1 false [REDUCE sym__ppStatementBlock 4 0 0];
   A 18780 1 true [REDUCE sym_label 2 0 0]; A 18782 1 false [REDUCE sym_label 2 0 0];
   A 18784 1 true [SHIFT 5922]; A 18786 1 true [SHIFT 5967]; A 18788 1 true [SHIFT 5879];
   A 18790 1 true [SHIFT 3907]; A 18792 1 false [SHIFT 3658]; A 18794 1 false [SHIFT 3084];
   A 18796 1 true [SHIFT 5252]; A 18798 1 true [SHIFT 5242]; A 18800 1 false [SHIFT 5242];
   A 18802 1 true [SHIFT 5243]; A 18804 1 true [SHIFT 1475]; A 18806 1 true [SHIFT 1174];
   A 18808 1 false [SHIFT 5247]; A 18810 1 true [SHIFT 5247]; A 18812 1 true [SHIFT 5248];
   A 18814 1 true [SHIFT 14284]; A 18816 1 true [SHIFT 1127];
   A 18818 2 true [REDUCE sym__statement 1 0 0; REDUCE aux_sym__ppStatementBlock_repeat1 1 0 0];
   A 18821 2 false [REDUCE sym__statement 1 0 0; REDUCE aux_sym__ppStatementBlock_repeat1 1 0 0];
   A 18824 2 true [REDUCE aux_sym_labeledStatement_repeat1 2 0 0; SHIFT_REPEAT 15984];
   A 18827 1 true [SHIFT 871]; A 18829 1 true [REDUCE sym__ref 2 0 0];
   A 18831 1 false [REDUCE sym__ref 2 0 0];
   A 18833 2 true [REDUCE aux_sym_labeledStatement_repeat1 2 0 0; SHIFT_REPEAT 15494];
   A 18836 1 true [SHIFT 5976]; A 18838 1 true [SHIFT 995]; A 18840 1 true [SHIFT 954];
   A 18842 2 true [REDUCE aux_sym_literalString_repeat1 2 0 0; SHIFT_REPEAT 5976];
   A 18845 2 true [REDUCE aux_sym_literalString_repeat1 2 0 0; SHIFT_REPEAT 12136];
   A 18848 1 true [SHIFT 1028]; A 18850 1 true [SHIFT 1194]; A 18852 1 true [SHIFT 972];
   A 18854 1 true [SHIFT 1103]; A 18856 1 true [SHIFT 6069];
   A 18858 2 true [REDUCE aux_sym_literalString_repeat1 2 0 0; SHIFT_REPEAT 6069];
   A 18861 2 true [REDUCE aux_sym_literalString_repeat1 2 0 0; SHIFT_REPEAT 12307];
   A 18864 2 true [REDUCE aux_sym_labeledStatement_repeat1 2 0 0; SHIFT_REPEAT 15868];
   A 18867 2 true [REDUCE aux_sym_labeledStatement_repeat1 2 0 0; SHIFT_REPEAT 15781];
   A 18870 2 true [REDUCE aux_sym_labeledStatement_repeat1 2 0 0; SHIFT_REPEAT 14784];
   A 18873 1 true [SHIFT 965]; A 18875 1 true [SHIFT 1004]; A 18877 1 true [SHIFT 10949];
   A 18879 1 true [SHIFT 11517]; A 18881 1 true [SHIFT 636]; A 18883 1 true [SHIFT 10753];
   A 18885 1 true [SHIFT 11500]; A 18887 1 true [SHIFT 622]; A 18889 1 true [SHIFT 10788];
   A 18891 1 true [SHIFT 11406]; A 18893 1 true [SHIFT 544]; A 18895 1 true [SHIFT 3814];
   A 18897 1 true [SHIFT 10740]; A 18899 1 true [SHIFT 11384]; A 18901 1 true [SHIFT 489];
   A 18903 1 true [SHIFT 10795]; A 18905 1 true [SHIFT 11409]; A 18907 1 true [SHIFT 551];
   A 18909 1 true [SHIFT 10754]; A 18911 1 true [SHIFT 11391]; A 18913 1 true [SHIFT 515];
   A 18915 1 true [SHIFT 1433]; A 18917 1 true [SHIFT 10800]; A 18919 1 true [SHIFT 11414];
   A 18921 1 true [SHIFT 559]; A 18923 1 true [SHIFT 10734]; A 18925 1 true [SHIFT 11382];
   A 18927 1 true [SHIFT 478]; A 18929 1 true [SHIFT 10765]; A 18931 1 true [SHIFT 11526];
   A 18933 1 true [SHIFT 653]; A 18935 1 true [SHIFT 10766]; A 18937 1 true [SHIFT 11393];
   A 18939 1 true [SHIFT 520]; A 18941 1 true [SHIFT 6180];
   A 18943 2 true [REDUCE aux_sym_literalString_repeat1 2 0 0; SHIFT_REPEAT 6180];
   A 18946 2 true [REDUCE aux_sym_literalString_repeat1 2 0 0; SHIFT_REPEAT 12141];
   A 18949 1 true [SHIFT 10806]; A 18951 1 true [SHIFT 11417]; A 18953 1 true [SHIFT 567];
   A 18955 2 true [REDUCE aux_sym_labeledStatement_repeat1 2 0 0; SHIFT_REPEAT 14212];
   A 18958 1 true [SHIFT 11051]; A 18960 1 true [SHIFT 11378]; A 18962 1 true [SHIFT 466];
   A 18964 1 true [SHIFT 10814]; A 18966 1 true [SHIFT 11422]; A 18968 1 true [SHIFT 575];
   A 18970 1 true [SHIFT 10773]; A 18972 1 true [SHIFT 11399]; A 18974 1 true [SHIFT 528];
   A 18976 1 true [SHIFT 11063]; A 18978 1 true [SHIFT 11380]; A 18980 1 true [SHIFT 472];
   A 18982 1 true [SHIFT 10954]; A 18984 1 true [SHIFT 11415]; A 18986 1 true [SHIFT 556];
   A 18988 2 true [REDUCE sym_implementation 1 0 0; SHIFT 508]; A 18991 1 true [SHIFT 11232];
   A 18993 1 true [SHIFT 8137]; A 18995 1 true [REDUCE sym_implementation 1 0 0];
   A 18997 1 true [SHIFT 11496]; A 18999 1 true [SHIFT 12439]; A 19001 1 true [SHIFT 1481];
   A 19003 1 true [SHIFT 7392]; A 19005 1 true [SHIFT 10811]; A 19007 1 true [SHIFT 10825];
   A 19009 1 true [SHIFT 11424]; A 19011 1 true [SHIFT 585]; A 19013 1 true [SHIFT 10847];
   A 19015 1 true [SHIFT 11533]; A 19017 1 true [SHIFT 664]; A 19019 1 true [SHIFT 10832];
   A 19021 1 true [SHIFT 11428]; A 19023 1 true [SHIFT 587]; A 19025 1 true [SHIFT 1190];
   A 19027 1 true [SHIFT 10841]; A 19029 1 true [SHIFT 11431]; A 19031 1 true [SHIFT 588];
   A 19033 1 true [SHIFT 10992]; A 19035 1 true [SHIFT 11363]; A 19037 1 true [SHIFT 531];
   A 19039 1 true [SHIFT 10846]; A 19041 1 true [SHIFT 11434]; A 19043 1 true [SHIFT 11155];
   A 19045 1 true [SHIFT 10948]; A 19047 1 true [SHIFT 11539]; A 19049 1 true [SHIFT 669];
   A 19051 1 true [SHIFT 10851]; A 19053 1 true [SHIFT 11436]; A 19055 1 true [SHIFT 589];
   A 19057 1 true [SHIFT 6260];
   A 19059 2 true [REDUCE aux_sym__definitions 2 0 0; SHIFT_REPEAT 3900];
   A 19062 2 true [REDUCE aux_sym__definitions 2 0 0; SHIFT_REPEAT 1368];
   A 19065 2 true [REDUCE aux_sym__definitions 2 0 0; SHIFT_REPEAT 11938];
   A 19068 2 true [REDUCE aux_sym__definitions 2 0 0; SHIFT_REPEAT 8473];
   A 19071 2 true [REDUCE aux_sym__definitions 2 0 0; SHIFT_REPEAT 508];
   A 19074 2 true [REDUCE aux_sym__definitions 2 0 0; SHIFT_REPEAT 11232];
   A 19077 2 true [REDUCE aux_sym__definitions 2 0 0; SHIFT_REPEAT 8137];
   A 19080 2 true [REDUCE aux_sym__definitions 2 0 0; SHIFT_REPEAT 12311];
   A 19083 1 true [REDUCE aux_sym__definitions 2 0 0];
   A 19085 2 true [REDUCE aux_sym__definitions 2 0 0; SHIFT_REPEAT 11496];
   A 19088 2 true [REDUCE aux_sym__definitions 2 0 0; SHIFT_REPEAT 12439];
   A 19091 2 true [REDUCE aux_sym__definitions 2 0 0; SHIFT_REPEAT 1481];
   A 19094 2 true [REDUCE aux_sym__definitions 2 0 0; SHIFT_REPEAT 7392];
   A 19097 2 true [REDUCE aux_sym__definitions 2 0 0; SHIFT_REPEAT 10811];
   A 19100 1 true [SHIFT 10855]; A 19102 1 true [SHIFT 11437]; A 19104 1 true [SHIFT 590];
   A 19106 1 true [SHIFT 10860]; A 19108 1 true [SHIFT 11438]; A 19110 1 true [SHIFT 591];
   A 19112 2 true [REDUCE aux_sym_labeledStatement_repeat1 2 0 0; SHIFT_REPEAT 15105];
   A 19115 1 true [SHIFT 10865]; A 19117 1 true [SHIFT 11439]; A 19119 1 true [SHIFT 592];
   A 19121 2 true [REDUCE aux_sym_literalString_repeat1 2 0 0; SHIFT_REPEAT 6260];
   A 19124 2 true [REDUCE aux_sym_literalString_repeat1 2 0 0; SHIFT_REPEAT 12256];
   A 19127 1 true [SHIFT 10869]; A 19129 1 true [SHIFT 11440]; A 19131 1 true [SHIFT 593];
   A 19133 1 true [SHIFT 10874]; A 19135 1 true [SHIFT 11441]; A 19137 1 true [SHIFT 594];
   A 19139 1 true [SHIFT 10877]; A 19141 1 true [SHIFT 11442]; A 19143 1 true [SHIFT 595];
   A 19145 1 true [SHIFT 10881]; A 19147 1 true [SHIFT 11444]; A 19149 1 true [SHIFT 596];
   A 19151 1 true [SHIFT 10885]; A 19153 1 true [SHIFT 11446]; A 19155 1 true [SHIFT 597];
   A 19157 1 true [SHIFT 10890]; A 19159 1 true [SHIFT 11447]; A 19161 1 true [SHIFT 598];
   A 19163 1 true [SHIFT 10892]; A 19165 1 true [SHIFT 11449]; A 19167 1 true [SHIFT 599];
   A 19169 1 true [SHIFT 10895]; A 19171 1 true [SHIFT 11452]; A 19173 1 true [SHIFT 600];
   A 19175 1 true [SHIFT 10900]; A 19177 1 true [SHIFT 11457]; A 19179 1 true [SHIFT 601];
   A 19181 1 true [SHIFT 10903]; A 19183 1 true [SHIFT 11459]; A 19185 1 true [SHIFT 602];
   A 19187 1 true [SHIFT 10907]; A 19189 1 true [SHIFT 11465]; A 19191 1 true [SHIFT 603];
   A 19193 1 true [SHIFT 10995]; A 19195 1 true [SHIFT 11365]; A 19197 1 true [SHIFT 674];
   A 19199 1 true [SHIFT 10912]; A 19201 1 true [SHIFT 11467]; A 19203 1 true [SHIFT 604];
   A 19205 1 true [SHIFT 10916]; A 19207 1 true [SHIFT 11470]; A 19209 1 true [SHIFT 605];
   A 19211 1 true [SHIFT 10918]; A 19213 1 true [SHIFT 11473]; A 19215 1 true [SHIFT 606];
   A 19217 1 true [SHIFT 10922]; A 19219 1 true [SHIFT 11476]; A 19221 1 true [SHIFT 607];
   A 19223 1 true [SHIFT 10924]; A 19225 1 true [SHIFT 11479]; A 19227 1 true [SHIFT 608];
   A 19229 1 true [SHIFT 12810]; A 19231 1 true [SHIFT 10928]; A 19233 1 true [SHIFT 11484];
   A 19235 1 true [SHIFT 609];
   A 19237 2 true [REDUCE aux_sym_labeledStatement_repeat1 2 0 0; SHIFT_REPEAT 14128];
   A 19240 2 true [REDUCE sym_implementation 2 0 0; SHIFT 508];
   A 19243 1 true [REDUCE sym_implementation 2 0 0]; A 19245 1 true [SHIFT 10931];
   A 19247 1 true [SHIFT 11485]; A 19249 1 true [SHIFT 610]; A 19251 1 true [SHIFT 12276];
   A 19253 1 true [SHIFT 11011]; A 19255 1 true [SHIFT 11369]; A 19257 1 true [SHIFT 451];
   A 19259 1 true [SHIFT 10782]; A 19261 1 true [SHIFT 11404]; A 19263 1 true [SHIFT 536];
   A 19265 1 true [REDUCE sym_caseLabel 2 0 0]; A 19267 1 false [REDUCE sym_caseLabel 2 0 0];
   A 19269 1 true [REDUCE sym_caseLabel 3 0 0]; A 19271 1 false [REDUCE sym_caseLabel 3 0 0];
   A 19273 1 true [SHIFT 11038]; A 19275 1 true [SHIFT 11374]; A 19277 1 true [SHIFT 461];
   A 19279 1 true [SHIFT 13188]; A 19281 1 true [SHIFT 10747]; A 19283 1 true [SHIFT 11387];
   A 19285 1 true [SHIFT 500]; A 19287 1 true [SHIFT 1159];
   A 19289 2 true [REDUCE sym_ppDeclSection 4 0 0; SHIFT 1368];
   A 19292 1 true [REDUCE sym_ppDeclSection 4 0 0]; A 19294 1 true [SHIFT 11493];
   A 19296 1 true [SHIFT 506]; A 19298 2 true [REDUCE sym_declSection 1 0 0; SHIFT 1368];
   A 19301 1 true [REDUCE sym_declSection 1 0 0]; A 19303 1 true [SHIFT 1439];
   A 19305 2 true [REDUCE aux_sym_labeledStatement_repeat1 2 0 0; SHIFT_REPEAT 15151];
   A 19308 1 true [SHIFT 6395];
   A 19310 2 true [REDUCE aux_sym_literalString_repeat1 2 0 0; SHIFT_REPEAT 6395];
   A 19313 2 true [REDUCE aux_sym_literalString_repeat1 2 0 0; SHIFT_REPEAT 12217];
   A 19316 2 true [REDUCE sym_ppDeclSection 5 0 0; SHIFT 1368];
   A 19319 1 true [REDUCE sym_ppDeclSection 5 0 0]; A 19321 1 true [SHIFT 1064];
   A 19323 1 true [SHIFT 6418];
   A 19325 2 true [REDUCE aux_sym_literalString_repeat1 2 0 0; SHIFT_REPEAT 6418];
   A 19328 2 true [REDUCE aux_sym_literalString_repeat1 2 0 0; SHIFT_REPEAT 12396];
   A 19331 2 true [REDUCE sym_declSection 3 0 0; SHIFT 1368];
   A 19334 1 true [REDUCE sym_declSection 3 0 0];
   A 19336 2 true [REDUCE sym_declSection 2 0 0; SHIFT 1368];
   A 19339 1 true [REDUCE sym_declSection 2 0 0]; A 19341 1 true [SHIFT 1055];
   A 19343 2 true [REDUCE sym_ppDeclSection 3 0 0; SHIFT 1368];
   A 19346 1 true [REDUCE sym_ppDeclSection 3 0 0]; A 19348 1 true [SHIFT 11039];
   A 19350 1 true [SHIFT 10797]; A 19352 1 true [SHIFT 10738]; A 19354 1 true [SHIFT 10750];
   A 19356 1 true [REDUCE aux_sym_exceptionElse_repeat1 1 0 0];
   A 19358 1 false [REDUCE aux_sym_exceptionElse_repeat1 1 0 0];
   A 19360 1 true [REDUCE sym_exceptionElse 3 0 0]; A 19362 1 true [SHIFT 10802];
   A 19364 1 true [SHIFT 6481];
   A 19366 2 true [REDUCE aux_sym_literalString_repeat1 2 0 0; SHIFT_REPEAT 6481];
   A 19369 2 true [REDUCE aux_sym_literalString_repeat1 2 0 0; SHIFT_REPEAT 12138];
   A 19372 1 true [SHIFT 10801]; A 19374 1 true [SHIFT 10809]; A 19376 1 true [SHIFT 11064];
   A 19378 1 true [SHIFT 10919]; A 19380 1 true [SHIFT 10818];
   A 19382 2 true [REDUCE aux_sym__declarations 2 0 0; SHIFT_REPEAT 3814];
   A 19385 2 true [REDUCE aux_sym__declarations 2 0 0; SHIFT_REPEAT 1368];
   A 19388 2 true [REDUCE aux_sym__declarations 2 0 0; SHIFT_REPEAT 11994];
   A 19391 2 true [REDUCE aux_sym__declarations 2 0 0; SHIFT_REPEAT 8399];
   A 19394 2 true [REDUCE aux_sym__declarations 2 0 0; SHIFT_REPEAT 10780];
   A 19397 2 true [REDUCE aux_sym__declarations 2 0 0; SHIFT_REPEAT 7962];
   A 19400 2 true [REDUCE aux_sym__declarations 2 0 0; SHIFT_REPEAT 12098];
   A 19403 1 true [REDUCE aux_sym__declarations 2 0 0];
   A 19405 2 true [REDUCE aux_sym__declarations 2 0 0; SHIFT_REPEAT 11514];
   A 19408 2 true [REDUCE aux_sym__declarations 2 0 0; SHIFT_REPEAT 12074];
   A 19411 2 true [REDUCE aux_sym__declarations 2 0 0; SHIFT_REPEAT 15790];
   A 19414 2 true [REDUCE aux_sym__declarations 2 0 0; SHIFT_REPEAT 1538];
   A 19417 2 true [REDUCE aux_sym__declarations 2 0 0; SHIFT_REPEAT 7404];
   A 19420 2 true [REDUCE aux_sym__declarations 2 0 0; SHIFT_REPEAT 11005];
   A 19423 1 true [SHIFT 10829]; A 19425 1 true [SHIFT 10968];
   A 19427 2 true [REDUCE aux_sym_literalString_repeat1 2 0 0; SHIFT_REPEAT 6511];
   A 19430 2 true [REDUCE aux_sym_literalString_repeat1 2 0 0; SHIFT_REPEAT 12229];
   A 19433 1 true [SHIFT 10884]; A 19435 1 true [SHIFT 10834]; A 19437 1 true [SHIFT 10761];
   A 19439 1 true [SHIFT 10843]; A 19441 1 true [SHIFT 10742]; A 19443 1 true [SHIFT 6569];
   A 19445 1 true [SHIFT 10849]; A 19447 1 true [SHIFT 10768]; A 19449 1 true [SHIFT 10852];
   A 19451 1 true [SHIFT 10856]; A 19453 1 true [SHIFT 6575]; A 19455 1 true [SHIFT 10960];
   A 19457 1 true [SHIFT 10861]; A 19459 1 true [SHIFT 10866]; A 19461 1 true [SHIFT 10870];
   A 19463 1 true [SHIFT 10744]; A 19465 1 true [SHIFT 10875]; A 19467 1 true [SHIFT 10879];
   A 19469 1 true [SHIFT 10882]; A 19471 1 true [SHIFT 10776]; A 19473 1 true [SHIFT 11042];
   A 19475 1 true [SHIFT 10886]; A 19477 1 true [SHIFT 10891]; A 19479 1 true [SHIFT 10893];
   A 19481 1 true [SHIFT 10898]; A 19483 1 true [SHIFT 10901]; A 19485 1 true [SHIFT 10906];
   A 19487 1 true [SHIFT 10909];
   A 19489 2 true [REDUCE aux_sym_literalString_repeat1 2 0 0; SHIFT_REPEAT 6569];
   A 19492 2 true [REDUCE aux_sym_literalString_repeat1 2 0 0; SHIFT_REPEAT 12079];
   A 19495 1 true [SHIFT 10914]; A 19497 1 true [SHIFT 10917]; A 19499 1 true [SHIFT 11004];
   A 19501 2 true [REDUCE aux_sym_literalString_repeat1 2 0 0; SHIFT_REPEAT 6575];
   A 19504 2 true [REDUCE aux_sym_literalString_repeat1 2 0 0; SHIFT_REPEAT 12302];
   A 19507 1 true [SHIFT 11068]; A 19509 1 true [SHIFT 10923]; A 19511 1 true [SHIFT 1469];
   A 19513 1 true [SHIFT 10927]; A 19515 1 true [SHIFT 10785]; A 19517 1 true [SHIFT 11060];
   A 19519 1 true [SHIFT 10930]; A 19521 1 true [SHIFT 10933]; A 19523 1 true [SHIFT 11994];
   A 19525 1 true [SHIFT 8399]; A 19527 1 true [SHIFT 10780]; A 19529 1 true [SHIFT 7962];
   A 19531 1 true [SHIFT 12098]; A 19533 1 true [REDUCE sym_interface 1 0 0];
   A 19535 1 true [SHIFT 11514]; A 19537 1 true [SHIFT 12074]; A 19539 1 true [SHIFT 15790];
   A 19541 1 true [SHIFT 1538]; A 19543 1 true [SHIFT 7404]; A 19545 1 true [SHIFT 11005];
   A 19547 1 true [REDUCE sym_interface 2 0 0]; A 19549 1 true [SHIFT 11024];
   A 19551 1 true [SHIFT 6511]; A 19553 1 true [REDUCE sym_exceptionElse 2 0 0];
   A 19555 1 true [SHIFT 10999]; A 19557 1 true [SHIFT 10791]; A 19559 1 true [SHIFT 1037];
   A 19561 1 true [SHIFT 1082];
   A 19563 2 true [REDUCE aux_sym_literalString_repeat1 2 0 0; SHIFT_REPEAT 6635];
   A 19566 2 true [REDUCE aux_sym_literalString_repeat1 2 0 0; SHIFT_REPEAT 12444];
   A 19569 1 true [SHIFT 6999]; A 19571 1 true [SHIFT 6716]; A 19573 1 true [SHIFT 6887];
   A 19575 1 false [SHIFT 4290]; A 19577 1 false [SHIFT 4286]; A 19579 1 true [SHIFT 4286];
   A 19581 1 true [SHIFT 4287]; A 19583 1 true [SHIFT 4290];
   A 19585 2 true [REDUCE aux_sym_literalString_repeat1 2 0 0; SHIFT_REPEAT 6716];
   A 19588 2 true [REDUCE aux_sym_literalString_repeat1 2 0 0; SHIFT_REPEAT 12142];
   A 19591 2 true [REDUCE aux_sym_literalString_repeat1 2 0 0; SHIFT_REPEAT 6760];
   A 19594 2 true [REDUCE aux_sym_literalString_repeat1 2 0 0; SHIFT_REPEAT 12238];
   A 19597 1 true [SHIFT 7012]; A 19599 1 false [SHIFT 5852]; A 19601 1 true [SHIFT 6989];
   A 19603 2 true [REDUCE aux_sym_literalString_repeat1 2 0 0; SHIFT_REPEAT 6852];
   A 19606 2 true [REDUCE aux_sym_literalString_repeat1 2 0 0; SHIFT_REPEAT 12215];
   A 19609 1 true [SHIFT 3943]; A 19611 1 false [SHIFT 3767]; A 19613 1 false [SHIFT 3143];
   A 19615 2 true [REDUCE aux_sym_literalString_repeat1 2 0 0; SHIFT_REPEAT 6887];
   A 19618 2 true [REDUCE aux_sym_literalString_repeat1 2 0 0; SHIFT_REPEAT 12198];
   A 19621 1 true [SHIFT 6760]; A 19623 1 false [SHIFT 4288]; A 19625 1 true [SHIFT 4288];
   A 19627 1 true [SHIFT 4289]
  ].

Definition ts_parse_actions_19629 : list (Z * list TSParseActionEntry) :=
  [
   A 19629 1 true [SHIFT 15212]; A 19631 1 true [SHIFT 6966]; A 19633 1 true [SHIFT 6852];
   A 19635 2 true [REDUCE aux_sym_literalString_repeat1 2 0 0; SHIFT_REPEAT 6966];
   A 19638 2 true [REDUCE aux_sym_literalString_repeat1 2 0 0; SHIFT_REPEAT 12400];
   A 19641 1 true [SHIFT 6635]; A 19643 1 true [SHIFT 456]; A 19645 1 true [SHIFT 11181];
   A 19647 1 true [SHIFT 9544]; A 19649 1 true [SHIFT 13483]; A 19651 1 true [SHIFT 11453];
   A 19653 1 true [SHIFT 12383]; A 19655 1 true [SHIFT 1981]; A 19657 1 true [SHIFT 8247];
   A 19659 1 true [SHIFT 10790]; A 19661 1 true [SHIFT 6997];
   A 19663 2 true [REDUCE aux_sym_literalString_repeat1 2 0 0; SHIFT_REPEAT 6997];
   A 19666 2 true [REDUCE aux_sym_literalString_repeat1 2 0 0; SHIFT_REPEAT 12264];
   A 19669 1 true [SHIFT 7073]; A 19671 1 false [SHIFT 4857]; A 19673 1 false [SHIFT 4850];
   A 19675 1 true [SHIFT 4850]; A 19677 1 true [SHIFT 4851]; A 19679 1 true [SHIFT 4857];
   A 19681 1 true [SHIFT 13271]; A 19683 1 true [SHIFT 7021]; A 19685 1 true [SHIFT 3882];
   A 19687 1 false [SHIFT 3552]; A 19689 1 false [SHIFT 3063]; A 19691 1 true [SHIFT 7028];
   A 19693 2 true [REDUCE aux_sym__definitions 2 0 0; SHIFT_REPEAT 456];
   A 19696 2 true [REDUCE aux_sym__definitions 2 0 0; SHIFT_REPEAT 11181];
   A 19699 2 true [REDUCE aux_sym__definitions 2 0 0; SHIFT_REPEAT 9544];
   A 19702 2 true [REDUCE aux_sym__definitions 2 0 0; SHIFT_REPEAT 11453];
   A 19705 2 true [REDUCE aux_sym__definitions 2 0 0; SHIFT_REPEAT 12383];
   A 19708 2 true [REDUCE aux_sym__definitions 2 0 0; SHIFT_REPEAT 1981];
   A 19711 2 true [REDUCE aux_sym__definitions 2 0 0; SHIFT_REPEAT 8247];
   A 19714 2 true [REDUCE aux_sym__definitions 2 0 0; SHIFT_REPEAT 10790];
   A 19717 2 true [REDUCE aux_sym__definitions 2 0 0; SHIFT_REPEAT 476];
   A 19720 2 true [REDUCE aux_sym__definitions 2 0 0; SHIFT_REPEAT 11225];
   A 19723 2 true [REDUCE aux_sym__definitions 2 0 0; SHIFT_REPEAT 9457];
   A 19726 2 true [REDUCE aux_sym__definitions 2 0 0; SHIFT_REPEAT 11505];
   A 19729 2 true [REDUCE aux_sym__definitions 2 0 0; SHIFT_REPEAT 12247];
   A 19732 2 true [REDUCE aux_sym__definitions 2 0 0; SHIFT_REPEAT 1993];
   A 19735 2 true [REDUCE aux_sym__definitions 2 0 0; SHIFT_REPEAT 8396];
   A 19738 2 true [REDUCE aux_sym__definitions 2 0 0; SHIFT_REPEAT 10926];
   A 19741 1 false [SHIFT 5813];
   A 19743 2 true [REDUCE aux_sym_literalString_repeat1 2 0 0; SHIFT_REPEAT 7021];
   A 19746 2 true [REDUCE aux_sym_literalString_repeat1 2 0 0; SHIFT_REPEAT 12286];
   A 19749 1 false [SHIFT 5907];
   A 19751 2 true [REDUCE aux_sym_literalString_repeat1 2 0 0; SHIFT_REPEAT 7028];
   A 19754 2 true [REDUCE aux_sym_literalString_repeat1 2 0 0; SHIFT_REPEAT 12274];
   A 19757 1 true [SHIFT 7070]; A 19759 1 true [SHIFT 7069];
   A 19761 1 true [REDUCE sym_root 1 0 0];
   A 19763 2 true [REDUCE aux_sym__definitions 2 0 0; SHIFT_REPEAT 506];
   A 19766 2 true [REDUCE aux_sym__definitions 2 0 0; SHIFT_REPEAT 11093];
   A 19769 2 true [REDUCE aux_sym__definitions 2 0 0; SHIFT_REPEAT 9509];
   A 19772 2 true [REDUCE aux_sym__definitions 2 0 0; SHIFT_REPEAT 11410];
   A 19775 2 true [REDUCE aux_sym__definitions 2 0 0; SHIFT_REPEAT 12295];
   A 19778 2 true [REDUCE aux_sym__definitions 2 0 0; SHIFT_REPEAT 2011];
   A 19781 2 true [REDUCE aux_sym__definitions 2 0 0; SHIFT_REPEAT 8222];
   A 19784 2 true [REDUCE aux_sym__definitions 2 0 0; SHIFT_REPEAT 10752];
   A 19787 1 false [SHIFT 4852]; A 19789 1 true [SHIFT 4852]; A 19791 1 true [SHIFT 4854];
   A 19793 1 true [SHIFT 15281]; A 19795 1 true [SHIFT 7112]; A 19797 1 true [SHIFT 7110];
   A 19799 1 true [SHIFT 4323]; A 19801 1 true [SHIFT 4319]; A 19803 1 false [SHIFT 4319];
   A 19805 1 true [SHIFT 7175]; A 19807 1 true [SHIFT 4320];
   A 19809 2 true [REDUCE aux_sym_literalString_repeat1 2 0 0; SHIFT_REPEAT 7049];
   A 19812 2 true [REDUCE aux_sym_literalString_repeat1 2 0 0; SHIFT_REPEAT 12409];
   A 19815 1 true [SHIFT 3895]; A 19817 1 false [SHIFT 3608]; A 19819 1 false [SHIFT 3147];
   A 19821 2 true [REDUCE sym_declSection 4 0 0; SHIFT 1368];
   A 19824 1 true [REDUCE sym_declSection 4 0 0]; A 19826 1 true [SHIFT 5003];
   A 19828 1 true [SHIFT 4995]; A 19830 1 false [SHIFT 4995]; A 19832 1 true [SHIFT 7114];
   A 19834 1 true [SHIFT 4996];
   A 19836 2 true [REDUCE aux_sym_literalString_repeat1 2 0 0; SHIFT_REPEAT 7062];
   A 19839 2 true [REDUCE aux_sym_literalString_repeat1 2 0 0; SHIFT_REPEAT 12175];
   A 19842 1 true [SHIFT 7049];
   A 19844 2 true [REDUCE aux_sym_literalString_repeat1 2 0 0; SHIFT_REPEAT 7074];
   A 19847 2 true [REDUCE aux_sym_literalString_repeat1 2 0 0; SHIFT_REPEAT 12442];
   A 19850 1 false [SHIFT 5000]; A 19852 1 true [SHIFT 5000]; A 19854 1 true [SHIFT 5001];
   A 19856 1 true [SHIFT 15753]; A 19858 1 true [SHIFT 7173]; A 19860 1 true [SHIFT 3949];
   A 19862 1 false [SHIFT 3485]; A 19864 1 false [SHIFT 3163]; A 19866 1 false [SHIFT 4321];
   A 19868 1 true [SHIFT 4321]; A 19870 1 true [SHIFT 4322]; A 19872 1 true [SHIFT 15382];
   A 19874 2 true [REDUCE sym_ppDeclSection 6 0 0; SHIFT 1368];
   A 19877 1 true [REDUCE sym_ppDeclSection 6 0 0]; A 19879 1 true [SHIFT 7062];
   A 19881 1 true [SHIFT 7074];
   A 19883 2 true [REDUCE aux_sym__classDeclarations 2 0 0; SHIFT_REPEAT 3814];
   A 19886 2 true [REDUCE aux_sym__classDeclarations 2 0 0; SHIFT_REPEAT 1368];
   A 19889 2 true [REDUCE aux_sym__classDeclarations 2 0 0; SHIFT_REPEAT 11991];
   A 19892 2 true [REDUCE aux_sym__classDeclarations 2 0 0; SHIFT_REPEAT 8368];
   A 19895 1 true [REDUCE aux_sym__classDeclarations 2 0 0];
   A 19897 2 true [REDUCE aux_sym__classDeclarations 2 0 0; SHIFT_REPEAT 10873];
   A 19900 2 true [REDUCE aux_sym__classDeclarations 2 0 0; SHIFT_REPEAT 7898];
   A 19903 2 true [REDUCE aux_sym__classDeclarations 2 0 0; SHIFT_REPEAT 12073];
   A 19906 2 true [REDUCE aux_sym__classDeclarations 2 0 0; SHIFT_REPEAT 15480];
   A 19909 2 true [REDUCE aux_sym__classDeclarations 2 0 0; SHIFT_REPEAT 1533];
   A 19912 2 true [REDUCE aux_sym__classDeclarations 2 0 0; SHIFT_REPEAT 7337];
   A 19915 1 true [SHIFT 7171]; A 19917 1 true [SHIFT 7249]; A 19919 1 true [SHIFT 7252];
   A 19921 1 true [SHIFT 3903]; A 19923 1 false [SHIFT 3642]; A 19925 1 false [SHIFT 3074];
   A 19927 1 true [SHIFT 7262]; A 19929 1 false [SHIFT 5155]; A 19931 1 false [SHIFT 5143];
   A 19933 1 true [SHIFT 5143]; A 19935 1 true [SHIFT 5149]; A 19937 1 true [SHIFT 5155];
   A 19939 1 false [SHIFT 5150]; A 19941 1 true [SHIFT 5150]; A 19943 1 true [SHIFT 5154];
   A 19945 1 true [SHIFT 14185]; A 19947 1 true [SHIFT 7227]; A 19949 1 true [SHIFT 7229];
   A 19951 1 true [SHIFT 3913]; A 19953 1 false [SHIFT 3685]; A 19955 1 false [SHIFT 3093];
   A 19957 1 true [SHIFT 7231]; A 19959 1 false [SHIFT 5478]; A 19961 1 false [SHIFT 5470];
   A 19963 1 true [SHIFT 5470]; A 19965 1 true [SHIFT 5472]; A 19967 1 true [SHIFT 5478];
   A 19969 1 false [SHIFT 5474]; A 19971 1 true [SHIFT 5474]; A 19973 1 true [SHIFT 5476];
   A 19975 1 true [SHIFT 14441]; A 19977 1 true [SHIFT 7162];
   A 19979 2 true [REDUCE aux_sym_literalString_repeat1 2 0 0; SHIFT_REPEAT 7162];
   A 19982 2 true [REDUCE aux_sym_literalString_repeat1 2 0 0; SHIFT_REPEAT 12161];
   A 19985 1 true [SHIFT 7223]; A 19987 1 true [SHIFT 7170];
   A 19989 2 true [REDUCE aux_sym_literalString_repeat1 2 0 0; SHIFT_REPEAT 7170];
   A 19992 2 true [REDUCE aux_sym_literalString_repeat1 2 0 0; SHIFT_REPEAT 12056];
   A 19995 1 true [SHIFT 7194];
   A 19997 2 true [REDUCE aux_sym_literalString_repeat1 2 0 0; SHIFT_REPEAT 7194];
   A 20000 2 true [REDUCE aux_sym_literalString_repeat1 2 0 0; SHIFT_REPEAT 12101];
   A 20003 1 false [SHIFT 6290]; A 20005 1 true [SHIFT 5718]; A 20007 1 true [SHIFT 4527];
   A 20009 1 true [REDUCE sym_statementTr 1 0 0]; A 20011 1 false [SHIFT 6182];
   A 20013 1 true [SHIFT 7202];
   A 20015 2 true [REDUCE aux_sym_literalString_repeat1 2 0 0; SHIFT_REPEAT 7202];
   A 20018 2 true [REDUCE aux_sym_literalString_repeat1 2 0 0; SHIFT_REPEAT 12082];
   A 20021 1 true [SHIFT 7204];
   A 20023 2 true [REDUCE aux_sym_literalString_repeat1 2 0 0; SHIFT_REPEAT 7204];
   A 20026 2 true [REDUCE aux_sym_literalString_repeat1 2 0 0; SHIFT_REPEAT 12433];
   A 20029 1 true [SHIFT 7208];
   A 20031 2 true [REDUCE aux_sym_literalString_repeat1 2 0 0; SHIFT_REPEAT 7208];
   A 20034 2 true [REDUCE aux_sym_literalString_repeat1 2 0 0; SHIFT_REPEAT 12130];
   A 20037 1 true [SHIFT 5530]; A 20039 1 false [SHIFT 3079]; A 20041 1 true [SHIFT 4795];
   A 20043 1 true [SHIFT 4791]; A 20045 1 false [SHIFT 4791]; A 20047 1 true [SHIFT 4792];
   A 20049 1 false [SHIFT 4793]; A 20051 1 true [SHIFT 4793]; A 20053 1 true [SHIFT 4794];
   A 20055 1 true [SHIFT 15756]; A 20057 1 true [SHIFT 7218];
   A 20059 2 true [REDUCE aux_sym_literalString_repeat1 2 0 0; SHIFT_REPEAT 7218];
   A 20062 2 true [REDUCE aux_sym_literalString_repeat1 2 0 0; SHIFT_REPEAT 12208];
   A 20065 1 true [SHIFT 7220];
   A 20067 2 true [REDUCE aux_sym_literalString_repeat1 2 0 0; SHIFT_REPEAT 7220];
   A 20070 2 true [REDUCE aux_sym_literalString_repeat1 2 0 0; SHIFT_REPEAT 12052];
   A 20073 2 true [REDUCE aux_sym_literalString_repeat1 2 0 0; SHIFT_REPEAT 7223];
   A 20076 2 true [REDUCE aux_sym_literalString_repeat1 2 0 0; SHIFT_REPEAT 12118];
   A 20079 2 true [REDUCE aux_sym_declTypes_repeat1 2 0 0; SHIFT_REPEAT 12330];
   A 20082 2 true [REDUCE aux_sym_declTypes_repeat1 2 0 0; SHIFT_REPEAT 12426];
   A 20085 1 false [SHIFT 5408]; A 20087 1 false [SHIFT 5400]; A 20089 1 true [SHIFT 7495];
   A 20091 1 true [SHIFT 5400]; A 20093 1 true [SHIFT 5402]; A 20095 1 true [SHIFT 5408];
   A 20097 1 false [SHIFT 5404]; A 20099 1 true [SHIFT 5404]; A 20101 1 true [SHIFT 5406];
   A 20103 1 true [SHIFT 14389]; A 20105 1 true [SHIFT 7258];
   A 20107 2 true [REDUCE aux_sym_literalString_repeat1 2 0 0; SHIFT_REPEAT 7258];
   A 20110 2 true [REDUCE aux_sym_literalString_repeat1 2 0 0; SHIFT_REPEAT 12281];
   A 20113 1 true [SHIFT 4014]; A 20115 1 false [SHIFT 3619]; A 20117 1 false [SHIFT 3059];
   A 20119 1 true [SHIFT 7261];
   A 20121 2 true [REDUCE aux_sym_literalString_repeat1 2 0 0; SHIFT_REPEAT 7261];
   A 20124 2 true [REDUCE aux_sym_literalString_repeat1 2 0 0; SHIFT_REPEAT 12083];
   A 20127 1 false [SHIFT 6129]; A 20129 1 true [SHIFT 7516]; A 20131 1 true [SHIFT 7530];
   A 20133 1 true [SHIFT 3947]; A 20135 1 false [SHIFT 3481]; A 20137 1 false [SHIFT 3154];
   A 20139 1 true [SHIFT 7532]; A 20141 1 true [SHIFT 4311]; A 20143 1 true [SHIFT 4307];
   A 20145 1 false [SHIFT 4307]; A 20147 1 true [SHIFT 4308]; A 20149 1 false [SHIFT 4309];
   A 20151 1 true [SHIFT 4309]; A 20153 1 true [SHIFT 4310]; A 20155 1 true [SHIFT 15316];
   A 20157 1 true [SHIFT 7284]; A 20159 1 false [SHIFT 3265]; A 20161 1 true [SHIFT 5564];
   A 20163 2 true [REDUCE sym__ref 1 0 0; REDUCE sym__genericName 1 0 0];
   A 20166 2 false [REDUCE sym__ref 1 0 0; REDUCE sym__genericName 1 0 0];
   A 20169 3 true [REDUCE sym__ref 1 0 0; REDUCE sym__genericName 1 0 0; SHIFT 3562];
   A 20173 2 true [REDUCE aux_sym_literalString_repeat1 2 0 0; SHIFT_REPEAT 7284];
   A 20176 2 true [REDUCE aux_sym_literalString_repeat1 2 0 0; SHIFT_REPEAT 12070];
   A 20179 1 true [SHIFT 7306]; A 20181 1 true [SHIFT 7330]; A 20183 1 true [SHIFT 7301];
   A 20185 2 true [REDUCE aux_sym_literalString_repeat1 2 0 0; SHIFT_REPEAT 7301];
   A 20188 2 true [REDUCE aux_sym_literalString_repeat1 2 0 0; SHIFT_REPEAT 12131];
   A 20191 1 true [SHIFT 7305];
   A 20193 2 true [REDUCE aux_sym_literalString_repeat1 2 0 0; SHIFT_REPEAT 7305];
   A 20196 2 true [REDUCE aux_sym_literalString_repeat1 2 0 0; SHIFT_REPEAT 12137];
   A 20199 2 true [REDUCE aux_sym_literalString_repeat1 2 0 0; SHIFT_REPEAT 7306];
   A 20202 2 true [REDUCE aux_sym_literalString_repeat1 2 0 0; SHIFT_REPEAT 12153];
   A 20205 1 true [SHIFT 7427]; A 20207 1 true [SHIFT 7429]; A 20209 1 false [SHIFT 6394];
   A 20211 1 true [SHIFT 7433]; A 20213 1 false [SHIFT 5309]; A 20215 1 false [SHIFT 5289];
   A 20217 1 true [SHIFT 5289]; A 20219 1 true [SHIFT 5296]; A 20221 1 true [SHIFT 5309];
   A 20223 1 false [SHIFT 5297]; A 20225 1 true [SHIFT 5297]; A 20227 1 true [SHIFT 5307];
   A 20229 1 true [SHIFT 15563]; A 20231 1 false [SHIFT 6438]; A 20233 1 true [SHIFT 7323];
   A 20235 2 true [REDUCE aux_sym_literalString_repeat1 2 0 0; SHIFT_REPEAT 7323];
   A 20238 2 true [REDUCE aux_sym_literalString_repeat1 2 0 0; SHIFT_REPEAT 12451];
   A 20241 1 true [SHIFT 7486]; A 20243 1 true [SHIFT 7492]; A 20245 1 true [SHIFT 3911];
   A 20247 1 false [SHIFT 3680]; A 20249 1 false [SHIFT 3090]; A 20251 1 true [SHIFT 4463];
   A 20253 1 true [SHIFT 7329];
   A 20255 2 true [REDUCE aux_sym_literalString_repeat1 2 0 0; SHIFT_REPEAT 7329];
   A 20258 2 true [REDUCE aux_sym_literalString_repeat1 2 0 0; SHIFT_REPEAT 12432];
   A 20261 2 true [REDUCE aux_sym_literalString_repeat1 2 0 0; SHIFT_REPEAT 7330];
   A 20264 2 true [REDUCE aux_sym_literalString_repeat1 2 0 0; SHIFT_REPEAT 12242];
   A 20267 1 true [SHIFT 12330]; A 20269 2 true [REDUCE sym_declTypes 1 0 0; SHIFT 12426];
   A 20272 1 false [SHIFT 6355]; A 20274 1 true [SHIFT 7518]; A 20276 1 true [SHIFT 7520];
   A 20278 1 true [SHIFT 3869]; A 20280 1 false [SHIFT 3506]; A 20282 1 false [SHIFT 3071];
   A 20284 2 true [REDUCE sym_declTypes 2 0 0; SHIFT 12426]; A 20287 1 true [SHIFT 7522];
   A 20289 1 false [SHIFT 4712]; A 20291 1 false [SHIFT 4707]; A 20293 1 true [SHIFT 4707];
   A 20295 1 true [SHIFT 4709]; A 20297 1 true [SHIFT 4712]; A 20299 1 false [SHIFT 4710];
   A 20301 1 true [SHIFT 4710]; A 20303 1 true [SHIFT 4711]; A 20305 1 true [SHIFT 14727];
   A 20307 2 true [REDUCE aux_sym_declTypes_repeat1 2 0 0; SHIFT_REPEAT 12338];
   A 20310 2 true [REDUCE aux_sym_declTypes_repeat1 2 0 0; SHIFT_REPEAT 12431];
   A 20313 1 true [SHIFT 3891]; A 20315 1 false [SHIFT 3587]; A 20317 1 false [SHIFT 3099];
   A 20319 1 true [SHIFT 7693]; A 20321 1 true [SHIFT 7703]; A 20323 1 true [SHIFT 3917];
   A 20325 1 false [SHIFT 3695]; A 20327 1 false [SHIFT 3095]; A 20329 1 true [SHIFT 7705];
   A 20331 1 false [SHIFT 4963]; A 20333 1 false [SHIFT 4957]; A 20335 1 true [SHIFT 7631];
   A 20337 1 true [SHIFT 4957]; A 20339 1 true [SHIFT 4958]; A 20341 1 true [SHIFT 4963];
   A 20343 1 true [SHIFT 5100]; A 20345 1 true [SHIFT 5084]; A 20347 1 false [SHIFT 5084];
   A 20349 1 true [SHIFT 5088]; A 20351 1 false [SHIFT 4961]; A 20353 1 true [SHIFT 4961];
   A 20355 1 true [SHIFT 4962]; A 20357 1 true [SHIFT 15608]; A 20359 1 false [SHIFT 6156];
   A 20361 1 true [SHIFT 7731]; A 20363 1 true [SHIFT 7741]; A 20365 1 false [SHIFT 5095];
   A 20367 1 true [SHIFT 5095]; A 20369 1 true [SHIFT 5098]; A 20371 1 true [SHIFT 14541];
   A 20373 1 false [SHIFT 4524]; A 20375 1 false [SHIFT 4518]; A 20377 1 true [SHIFT 7748];
   A 20379 1 true [SHIFT 4518]; A 20381 1 true [SHIFT 4519]; A 20383 1 true [SHIFT 4524];
   A 20385 1 true [SHIFT 12338]; A 20387 2 true [REDUCE sym_declTypes 1 0 0; SHIFT 12431];
   A 20390 1 true [SHIFT 7394];
   A 20392 2 true [REDUCE aux_sym_literalString_repeat1 2 0 0; SHIFT_REPEAT 7394];
   A 20395 2 true [REDUCE aux_sym_literalString_repeat1 2 0 0; SHIFT_REPEAT 12080];
   A 20398 2 true [REDUCE sym_declTypes 2 0 0; SHIFT 12431];
   A 20401 1 true [REDUCE aux_sym_declProp_repeat2 2 0 100]; A 20403 1 true [SHIFT 10070];
   A 20405 1 true [SHIFT 7662]; A 20407 1 true [SHIFT 7664]; A 20409 1 true [SHIFT 3951];
   A 20411 1 false [SHIFT 3489]; A 20413 1 false [SHIFT 3171]; A 20415 1 false [SHIFT 4635];
   A 20417 1 true [SHIFT 4635]; A 20419 1 false [SHIFT 4649]; A 20421 1 false [SHIFT 4629];
   A 20423 1 true [SHIFT 7602]; A 20425 1 true [SHIFT 4629]; A 20427 1 true [SHIFT 4633];
   A 20429 1 true [SHIFT 4638]; A 20431 1 true [SHIFT 15214]; A 20433 1 true [SHIFT 4649];
   A 20435 1 true [SHIFT 12347]; A 20437 2 true [REDUCE sym_declTypes 1 0 0; SHIFT 12438];
   A 20440 1 true [SHIFT 7667]; A 20442 1 true [SHIFT 4334]; A 20444 1 true [SHIFT 4330];
   A 20446 1 false [SHIFT 4330]; A 20448 1 true [SHIFT 4331]; A 20450 1 false [SHIFT 4332];
   A 20452 1 true [SHIFT 4332]; A 20454 1 true [SHIFT 4333]; A 20456 1 true [SHIFT 15426];
   A 20458 1 false [SHIFT 6550]; A 20460 1 true [SHIFT 7579]; A 20462 1 true [SHIFT 7582];
   A 20464 2 true [REDUCE sym_declTypes 2 0 0; SHIFT 12438]; A 20467 1 true [SHIFT 7575];
   A 20469 1 false [SHIFT 6522];
   A 20471 2 true [REDUCE aux_sym_literalString_repeat1 2 0 0; SHIFT_REPEAT 7423];
   A 20474 2 true [REDUCE aux_sym_literalString_repeat1 2 0 0; SHIFT_REPEAT 12144];
   A 20477 1 true [SHIFT 7577]; A 20479 1 true [SHIFT 3806]; A 20481 1 false [SHIFT 3743];
   A 20483 1 false [SHIFT 3124]; A 20485 1 true [SHIFT 7620]; A 20487 1 false [SHIFT 6480];
   A 20489 2 true [REDUCE aux_sym_literalString_repeat1 2 0 0; SHIFT_REPEAT 7434];
   A 20492 2 true [REDUCE aux_sym_literalString_repeat1 2 0 0; SHIFT_REPEAT 12391];
   A 20495 1 true [REDUCE aux_sym_declProp_repeat2 3 0 161]; A 20497 1 true [SHIFT 7580];
   A 20499 1 false [SHIFT 4218]; A 20501 1 false [SHIFT 4214]; A 20503 1 true [SHIFT 4214];
   A 20505 1 true [SHIFT 4215]; A 20507 1 true [SHIFT 4218]; A 20509 1 false [SHIFT 4216];
   A 20511 1 true [SHIFT 4216]; A 20513 1 true [SHIFT 4217]; A 20515 1 true [SHIFT 14950];
   A 20517 1 true [SHIFT 7468];
   A 20519 2 true [REDUCE aux_sym_literalString_repeat1 2 0 0; SHIFT_REPEAT 7468];
   A 20522 2 true [REDUCE aux_sym_literalString_repeat1 2 0 0; SHIFT_REPEAT 12414];
   A 20525 1 true [SHIFT 7627];
   A 20527 2 true [REDUCE aux_sym_declTypes_repeat1 2 0 0; SHIFT_REPEAT 12347];
   A 20530 2 true [REDUCE aux_sym_declTypes_repeat1 2 0 0; SHIFT_REPEAT 12438];
   A 20533 1 false [SHIFT 4521]; A 20535 1 true [SHIFT 4521]; A 20537 1 true [SHIFT 4522];
   A 20539 1 true [SHIFT 14452]; A 20541 1 true [SHIFT 7480]; A 20543 1 true [SHIFT 3816];
   A 20545 1 false [SHIFT 3665]; A 20547 1 false [SHIFT 3107];
   A 20549 2 true [REDUCE aux_sym_literalString_repeat1 2 0 0; SHIFT_REPEAT 7480];
   A 20552 2 true [REDUCE aux_sym_literalString_repeat1 2 0 0; SHIFT_REPEAT 12418];
   A 20555 1 true [SHIFT 7491];
   A 20557 2 true [REDUCE aux_sym_literalString_repeat1 2 0 0; SHIFT_REPEAT 7491];
   A 20560 2 true [REDUCE aux_sym_literalString_repeat1 2 0 0; SHIFT_REPEAT 12363];
   A 20563 1 true [SHIFT 7510];
   A 20565 2 true [REDUCE aux_sym_literalString_repeat1 2 0 0; SHIFT_REPEAT 7510];
   A 20568 2 true [REDUCE aux_sym_literalString_repeat1 2 0 0; SHIFT_REPEAT 12300];
   A 20571 1 false [SHIFT 6158]; A 20573 1 true [SHIFT 7524];
   A 20575 2 true [REDUCE aux_sym_literalString_repeat1 2 0 0; SHIFT_REPEAT 7524];
   A 20578 2 true [REDUCE aux_sym_literalString_repeat1 2 0 0; SHIFT_REPEAT 12398];
   A 20581 1 true [SHIFT 3896]; A 20583 1 false [SHIFT 3546]; A 20585 1 false [SHIFT 3080];
   A 20587 1 true [SHIFT 7423]; A 20589 1 true [SHIFT 7434]; A 20591 1 true [SHIFT 7834];
   A 20593 1 true [SHIFT 7839]; A 20595 1 true [SHIFT 3931]; A 20597 1 false [SHIFT 3739];
   A 20599 1 false [SHIFT 3117]; A 20601 1 true [SHIFT 7865]; A 20603 1 true [SHIFT 4205];
   A 20605 1 true [SHIFT 4201]; A 20607 1 false [SHIFT 4201]; A 20609 1 true [SHIFT 4202];
   A 20611 1 false [SHIFT 4203]; A 20613 1 true [SHIFT 4203]; A 20615 1 true [SHIFT 4204];
   A 20617 1 true [SHIFT 14902]; A 20619 1 true [SHIFT 7787]; A 20621 1 true [SHIFT 7791];
   A 20623 1 true [REDUCE aux_sym_declProp_repeat2 2 0 101];
   A 20625 1 true [REDUCE aux_sym_declProp_repeat2 2 0 102];
   A 20627 1 true [REDUCE aux_sym_declProp_repeat2 2 0 103];
   A 20629 1 true [REDUCE aux_sym_declProp_repeat2 2 0 104]; A 20631 1 true [SHIFT 7804];
   A 20633 1 false [SHIFT 4773]; A 20635 1 false [SHIFT 4746]; A 20637 1 true [SHIFT 4746];
   A 20639 1 true [SHIFT 4750]; A 20641 1 true [SHIFT 4773]; A 20643 1 false [SHIFT 6346];
   A 20645 1 false [SHIFT 6798]; A 20647 1 true [SHIFT 6092]; A 20649 1 true [SHIFT 4511];
   A 20651 1 false [SHIFT 4762]; A 20653 1 true [SHIFT 4762]; A 20655 1 true [SHIFT 4772];
   A 20657 1 true [SHIFT 15531]; A 20659 1 true [SHIFT 9182]; A 20661 1 true [SHIFT 4485];
   A 20663 1 false [SHIFT 5969]; A 20665 1 true [SHIFT 5910];
   A 20667 1 true [REDUCE sym_declString 3 0 0]; A 20669 1 true [SHIFT 7866];
   A 20671 1 true [SHIFT 7868]; A 20673 1 true [SHIFT 3864]; A 20675 1 false [SHIFT 3699];
   A 20677 1 false [SHIFT 3173];
   A 20679 2 true [REDUCE aux_sym__declFields 2 0 0; SHIFT_REPEAT 4020];
   A 20682 2 true [REDUCE aux_sym__declFields 2 0 0; SHIFT_REPEAT 1368];
   A 20685 2 true [REDUCE aux_sym__declFields 2 0 0; SHIFT_REPEAT 13044];
   A 20688 1 true [REDUCE aux_sym__declFields 2 0 0]; A 20690 1 true [SHIFT 7870];
   A 20692 1 false [SHIFT 4679]; A 20694 1 false [SHIFT 4675]; A 20696 1 true [SHIFT 4675];
   A 20698 1 true [SHIFT 4676]; A 20700 1 true [SHIFT 4679];
   A 20702 1 true [REDUCE sym_declString 6 0 0]; A 20704 1 true [SHIFT 4011];
   A 20706 1 false [SHIFT 3616]; A 20708 1 false [SHIFT 3097]; A 20710 1 false [SHIFT 4677];
   A 20712 1 true [SHIFT 4677]; A 20714 1 true [SHIFT 4678]; A 20716 1 true [SHIFT 14474];
   A 20718 1 true [SHIFT 7773];
   A 20720 2 true [REDUCE aux_sym_literalString_repeat1 2 0 0; SHIFT_REPEAT 7773];
   A 20723 2 true [REDUCE aux_sym_literalString_repeat1 2 0 0; SHIFT_REPEAT 12405];
   A 20726 1 false [SHIFT 5044]; A 20728 1 true [SHIFT 5044]; A 20730 1 true [SHIFT 5058];
   A 20732 1 true [SHIFT 5031]; A 20734 1 false [SHIFT 5031]; A 20736 1 true [SHIFT 8132];
   A 20738 1 true [SHIFT 5042]; A 20740 1 true [SHIFT 5056]; A 20742 1 true [SHIFT 14807];
   A 20744 1 true [SHIFT 12531]; A 20746 1 true [SHIFT 4448]; A 20748 1 true [SHIFT 6070];
   A 20750 1 true [SHIFT 6169]; A 20752 1 true [SHIFT 4499]; A 20754 1 true [SHIFT 3962];
   A 20756 1 false [SHIFT 3646]; A 20758 1 false [SHIFT 3076]; A 20760 1 true [SHIFT 5614];
   A 20762 1 true [SHIFT 4654]; A 20764 1 true [REDUCE sym_raiseTr 2 0 15];
   A 20766 1 false [SHIFT 3098]; A 20768 1 false [SHIFT 3216]; A 20770 1 true [SHIFT 5670];
   A 20772 1 true [SHIFT 11851]; A 20774 1 false [SHIFT 12033]; A 20776 1 true [SHIFT 12033];
   A 20778 1 true [SHIFT 11251]; A 20780 1 true [SHIFT 8035]; A 20782 1 true [SHIFT 8007];
   A 20784 1 true [SHIFT 8010]; A 20786 1 true [SHIFT 3921]; A 20788 1 false [SHIFT 3703];
   A 20790 1 false [SHIFT 3101]; A 20792 1 true [SHIFT 6012]; A 20794 1 true [SHIFT 8026];
   A 20796 1 true [SHIFT 5686]; A 20798 1 true [SHIFT 4553]; A 20800 1 true [SHIFT 4565];
   A 20802 1 true [SHIFT 4516]; A 20804 1 false [SHIFT 4516]; A 20806 1 true [SHIFT 4523];
   A 20808 1 true [SHIFT 6164]; A 20810 1 true [SHIFT 8152]; A 20812 1 true [SHIFT 4429];
   A 20814 1 true [SHIFT 8157]; A 20816 1 false [SHIFT 3209]; A 20818 1 true [SHIFT 3927];
   A 20820 1 false [SHIFT 3720]; A 20822 1 false [SHIFT 3104]; A 20824 1 true [SHIFT 12642];
   A 20826 1 true [SHIFT 8166]; A 20828 1 true [SHIFT 4375]; A 20830 1 true [SHIFT 4372];
   A 20832 1 false [SHIFT 4372]; A 20834 1 true [SHIFT 4440];
   A 20836 2 true [REDUCE aux_sym_declConsts_repeat1 2 0 0; SHIFT_REPEAT 12642];
   A 20839 1 true [SHIFT 8025]; A 20841 1 false [SHIFT 4373]; A 20843 1 true [SHIFT 4373];
   A 20845 1 true [SHIFT 4374]; A 20847 1 true [SHIFT 15551]; A 20849 1 false [SHIFT 4526];
   A 20851 1 true [SHIFT 4526]; A 20853 1 true [SHIFT 4555]; A 20855 1 true [SHIFT 14654];
   A 20857 1 true [SHIFT 15876]; A 20859 1 true [SHIFT 4471]; A 20861 1 true [SHIFT 12699];
   A 20863 1 true [SHIFT 12674];
   A 20865 2 true [REDUCE aux_sym_declConsts_repeat1 2 0 0; SHIFT_REPEAT 12699];
   A 20868 1 true [SHIFT 8198]; A 20870 1 true [SHIFT 4234]; A 20872 1 true [SHIFT 4230];
   A 20874 1 false [SHIFT 4230]; A 20876 1 true [SHIFT 4231]; A 20878 1 true [SHIFT 5352];
   A 20880 1 true [SHIFT 5342]; A 20882 1 false [SHIFT 5342]; A 20884 1 true [SHIFT 8238];
   A 20886 1 true [SHIFT 5343]; A 20888 1 false [SHIFT 4232]; A 20890 1 true [SHIFT 4232];
   A 20892 1 true [SHIFT 4233]; A 20894 1 true [SHIFT 15000]; A 20896 1 true [SHIFT 5619];
   A 20898 1 true [REDUCE sym_repeatTr 3 0 39]; A 20900 1 true [SHIFT 1363];
   A 20902 1 true [SHIFT 8437]; A 20904 1 true [SHIFT 8457]; A 20906 1 true [SHIFT 3939];
   A 20908 1 false [SHIFT 3757]; A 20910 1 false [SHIFT 3140]; A 20912 1 true [SHIFT 5635];
   A 20914 1 true [REDUCE sym_raiseTr 4 0 78]; A 20916 1 true [SHIFT 8564];
   A 20918 1 true [SHIFT 4262]; A 20920 1 true [SHIFT 4258]; A 20922 1 false [SHIFT 4258];
   A 20924 1 true [SHIFT 4259]; A 20926 1 true [SHIFT 5836];
   A 20928 2 true [REDUCE aux_sym_declConsts_repeat1 2 0 0; SHIFT_REPEAT 12674];
   A 20931 1 true [SHIFT 5637]; A 20933 1 true [REDUCE sym_repeatTr 4 0 79];
   A 20935 1 false [SHIFT 4260]; A 20937 1 true [SHIFT 4260]; A 20939 1 true [SHIFT 4261];
   A 20941 1 true [SHIFT 15108]; A 20943 1 true [SHIFT 15457]; A 20945 1 true [SHIFT 6220];
   A 20947 1 true [SHIFT 8499]; A 20949 1 false [SHIFT 5346]; A 20951 1 true [SHIFT 5346];
   A 20953 1 true [SHIFT 5348]; A 20955 1 true [SHIFT 14335]; A 20957 1 true [SHIFT 6440];
   A 20959 1 true [SHIFT 8483]; A 20961 1 true [SHIFT 6945]; A 20963 1 true [SHIFT 3811];
   A 20965 1 false [SHIFT 3736]; A 20967 1 false [SHIFT 10158]; A 20969 1 false [SHIFT 3121];
   A 20971 1 true [SHIFT 13996]; A 20973 1 true [SHIFT 1290]; A 20975 1 true [SHIFT 6552];
   A 20977 1 true [SHIFT 13782]; A 20979 1 true [SHIFT 3909]; A 20981 1 false [SHIFT 3672];
   A 20983 1 false [SHIFT 3088]; A 20985 1 true [SHIFT 8472]; A 20987 1 true [SHIFT 8479];
   A 20989 1 true [SHIFT 4037]; A 20991 1 false [SHIFT 3539]; A 20993 1 false [SHIFT 3109];
   A 20995 1 true [SHIFT 8484]; A 20997 1 true [SHIFT 4360]; A 20999 1 true [SHIFT 4353];
   A 21001 1 false [SHIFT 4353]; A 21003 1 true [SHIFT 4356]; A 21005 1 false [SHIFT 4357];
   A 21007 1 true [SHIFT 4357]; A 21009 1 true [SHIFT 4359]; A 21011 1 true [SHIFT 15300];
   A 21013 1 true [SHIFT 4517]; A 21015 1 true [SHIFT 5963]; A 21017 1 true [SHIFT 8202];
   A 21019 1 true [SHIFT 8204]; A 21021 1 true [SHIFT 6385]; A 21023 1 true [SHIFT 3829];
   A 21025 1 false [SHIFT 3493]; A 21027 1 false [SHIFT 3064];
   A 21029 1 true [REDUCE sym__initializer 1 0 0];
   A 21031 1 true [REDUCE sym_assignment 3 0 25]; A 21033 1 true [SHIFT 8209];
   A 21035 1 true [SHIFT 4418]; A 21037 1 true [SHIFT 4414]; A 21039 1 false [SHIFT 4414];
   A 21041 1 true [SHIFT 4415]; A 21043 1 true [SHIFT 6495]; A 21045 1 false [SHIFT 4416];
   A 21047 1 true [SHIFT 4416]; A 21049 1 true [SHIFT 4417]; A 21051 1 true [SHIFT 14439];
   A 21053 1 true [SHIFT 8271]; A 21055 1 true [SHIFT 8274]; A 21057 1 true [SHIFT 5731];
   A 21059 1 true [SHIFT 5692]; A 21061 1 true [SHIFT 5714]; A 21063 1 true [SHIFT 8278];
   A 21065 1 true [SHIFT 5028]; A 21067 1 true [SHIFT 5012]; A 21069 1 false [SHIFT 5012];
   A 21071 1 true [SHIFT 5013]; A 21073 1 true [SHIFT 8315]; A 21075 1 true [SHIFT 8317];
   A 21077 1 true [SHIFT 3844]; A 21079 1 false [SHIFT 3492]; A 21081 1 false [SHIFT 3110];
   A 21083 1 true [SHIFT 8321]; A 21085 1 true [SHIFT 4539]; A 21087 1 true [SHIFT 4535];
   A 21089 1 false [SHIFT 4535]; A 21091 1 true [SHIFT 4536]; A 21093 1 false [SHIFT 4537];
   A 21095 1 true [SHIFT 4537]; A 21097 1 true [SHIFT 4538]; A 21099 1 true [SHIFT 14863];
   A 21101 1 true [SHIFT 8376]; A 21103 1 true [SHIFT 8378]; A 21105 1 true [SHIFT 3849];
   A 21107 1 false [SHIFT 3541]; A 21109 1 false [SHIFT 3115]; A 21111 1 true [SHIFT 8381];
   A 21113 1 true [SHIFT 4578]; A 21115 1 true [SHIFT 4574]; A 21117 1 false [SHIFT 4574];
   A 21119 1 true [SHIFT 4575]; A 21121 1 false [SHIFT 4576]; A 21123 1 true [SHIFT 4576];
   A 21125 1 true [SHIFT 4577]; A 21127 1 true [SHIFT 15197]; A 21129 1 false [SHIFT 5025];
   A 21131 1 true [SHIFT 5025]; A 21133 1 true [SHIFT 5027]; A 21135 1 true [SHIFT 15125];
   A 21137 1 true [SHIFT 4406]; A 21139 1 true [SHIFT 8518]; A 21141 1 true [SHIFT 8520];
   A 21143 1 true [SHIFT 3925]; A 21145 1 false [SHIFT 3714]; A 21147 1 false [SHIFT 3103];
   A 21149 1 true [SHIFT 8524]; A 21151 1 true [SHIFT 4431]; A 21153 1 true [SHIFT 4939];
   A 21155 1 true [SHIFT 4906]; A 21157 1 false [SHIFT 4906]; A 21159 1 true [SHIFT 4909];
   A 21161 1 true [SHIFT 8579]; A 21163 1 true [SHIFT 8594]; A 21165 1 true [SHIFT 3935];
   A 21167 1 false [SHIFT 3746]; A 21169 1 false [SHIFT 3132]; A 21171 1 false [SHIFT 4914];
   A 21173 1 true [SHIFT 4914]; A 21175 1 true [SHIFT 4915]; A 21177 1 true [SHIFT 14761];
   A 21179 1 true [SHIFT 970]; A 21181 1 true [REDUCE sym_typerefPtr 2 0 14];
   A 21183 1 true [SHIFT 1045]; A 21185 1 true [SHIFT 870]; A 21187 1 true [SHIFT 1116];
   A 21189 1 true [SHIFT 1144]; A 21191 1 true [SHIFT 1158]; A 21193 1 true [SHIFT 8710];
   A 21195 1 true [SHIFT 8712]; A 21197 1 true [SHIFT 3937]; A 21199 1 false [SHIFT 3752];
   A 21201 1 false [SHIFT 3134]; A 21203 1 true [SHIFT 1180]; A 21205 1 true [SHIFT 4345];
   A 21207 1 true [SHIFT 1207]; A 21209 1 true [SHIFT 4361]; A 21211 1 true [SHIFT 4342];
   A 21213 1 false [SHIFT 4342]; A 21215 1 true [SHIFT 8789]; A 21217 1 true [SHIFT 4344];
   A 21219 1 true [SHIFT 12305]; A 21221 2 true [REDUCE sym_declTypes 1 0 0; SHIFT 12415];
   A 21224 1 true [SHIFT 502]; A 21226 1 true [SHIFT 1053];
   A 21228 2 true [REDUCE sym_declTypes 2 0 0; SHIFT 12415]; A 21231 1 true [SHIFT 1062];
   A 21233 1 true [SHIFT 12321]; A 21235 2 true [REDUCE sym_declTypes 1 0 0; SHIFT 12419];
   A 21238 1 true [SHIFT 8716]; A 21240 1 true [SHIFT 8718]; A 21242 1 true [SHIFT 1072];
   A 21244 1 true [SHIFT 3834]; A 21246 1 false [SHIFT 3660]; A 21248 1 false [SHIFT 3078];
   A 21250 1 true [SHIFT 994]; A 21252 1 true [SHIFT 1081];
   A 21254 2 true [REDUCE sym_declTypes 2 0 0; SHIFT 12419]; A 21257 1 true [SHIFT 8723];
   A 21259 1 true [SHIFT 1090]; A 21261 1 true [SHIFT 4457]; A 21263 1 true [SHIFT 4453];
   A 21265 1 false [SHIFT 4453]; A 21267 1 true [SHIFT 4454];
   A 21269 1 true [REDUCE sym_typerefDot 3 0 25]; A 21271 1 false [SHIFT 4455];
   A 21273 1 true [SHIFT 4455]; A 21275 1 true [SHIFT 4456]; A 21277 1 true [SHIFT 15332];
   A 21279 2 true [REDUCE aux_sym_declTypes_repeat1 2 0 0; SHIFT_REPEAT 12321];
   A 21282 2 true [REDUCE aux_sym_declTypes_repeat1 2 0 0; SHIFT_REPEAT 12419];
   A 21285 1 true [SHIFT 8860]; A 21287 1 true [SHIFT 8866]; A 21289 1 true [SHIFT 3945];
   A 21291 1 false [SHIFT 3477]; A 21293 1 false [SHIFT 3152]; A 21295 1 true [SHIFT 8793];
   A 21297 1 true [REDUCE sym_typeref 1 0 0]; A 21299 1 true [SHIFT 12050];
   A 21301 1 true [SHIFT 10810]; A 21303 1 true [SHIFT 2583]; A 21305 1 true [SHIFT 8795];
   A 21307 1 true [REDUCE sym_typeref 2 0 64]; A 21309 1 true [SHIFT 2585];
   A 21311 1 true [SHIFT 3941]; A 21313 1 false [SHIFT 3761]; A 21315 1 false [SHIFT 3142];
   A 21317 1 true [SHIFT 8715]; A 21319 1 true [SHIFT 8836]; A 21321 1 true [SHIFT 8838];
   A 21323 1 true [SHIFT 3919]; A 21325 1 false [SHIFT 3698]; A 21327 1 false [SHIFT 3100];
   A 21329 1 true [SHIFT 1034]; A 21331 1 true [SHIFT 4252]; A 21333 1 true [SHIFT 4248];
   A 21335 1 false [SHIFT 4248]; A 21337 1 true [SHIFT 4249]; A 21339 1 true [SHIFT 8848];
   A 21341 1 true [SHIFT 4384]; A 21343 1 true [SHIFT 4313]; A 21345 1 false [SHIFT 4313];
   A 21347 1 true [SHIFT 4341]; A 21349 1 true [SHIFT 8879]; A 21351 1 true [SHIFT 1400];
   A 21353 1 true [SHIFT 693]; A 21355 1 false [SHIFT 3108]; A 21357 1 true [SHIFT 8798];
   A 21359 1 true [SHIFT 4302]
  ].

Definition ts_parse_actions_21361 : list (Z * list TSParseActionEntry) :=
  [
   A 21361 1 true [SHIFT 4298]; A 21363 1 false [SHIFT 4298]; A 21365 1 true [SHIFT 4299];
   A 21367 1 true [SHIFT 4280]; A 21369 1 true [SHIFT 4276]; A 21371 1 false [SHIFT 4276];
   A 21373 1 true [SHIFT 4277]; A 21375 1 true [SHIFT 1430]; A 21377 1 true [SHIFT 1125];
   A 21379 1 false [SHIFT 4349]; A 21381 1 true [SHIFT 4349]; A 21383 1 true [SHIFT 4376];
   A 21385 1 true [SHIFT 14589]; A 21387 1 true [SHIFT 12061];
   A 21389 2 true [REDUCE sym_declTypes 1 0 0; SHIFT 12416]; A 21392 1 false [SHIFT 4250];
   A 21394 1 true [SHIFT 4250]; A 21396 1 true [SHIFT 4251]; A 21398 1 true [SHIFT 15051];
   A 21400 1 true [SHIFT 1438]; A 21402 1 true [SHIFT 945]; A 21404 1 true [SHIFT 1425];
   A 21406 1 true [SHIFT 1449]; A 21408 1 false [SHIFT 4300]; A 21410 1 true [SHIFT 4300];
   A 21412 1 true [SHIFT 4301]; A 21414 1 true [SHIFT 15265]; A 21416 1 true [SHIFT 8669];
   A 21418 1 true [SHIFT 1468]; A 21420 1 true [SHIFT 1428]; A 21422 1 true [SHIFT 8931];
   A 21424 1 true [SHIFT 8933]; A 21426 1 true [SHIFT 8671]; A 21428 1 true [SHIFT 3899];
   A 21430 1 false [SHIFT 3625]; A 21432 1 false [SHIFT 3070]; A 21434 1 true [SHIFT 3923];
   A 21436 1 false [SHIFT 3709]; A 21438 1 false [SHIFT 3102]; A 21440 1 true [SHIFT 1003];
   A 21442 1 true [SHIFT 953]; A 21444 1 true [SHIFT 3690]; A 21446 1 true [SHIFT 5059];
   A 21448 1 true [SHIFT 10069]; A 21450 1 true [REDUCE sym_exprArgs 1 0 0];
   A 21452 1 false [SHIFT 4778]; A 21454 1 true [SHIFT 4778]; A 21456 1 true [SHIFT 4780];
   A 21458 1 true [SHIFT 4777]; A 21460 1 false [SHIFT 4777]; A 21462 1 true [SHIFT 4779];
   A 21464 1 true [SHIFT 15744]; A 21466 1 true [SHIFT 8679]; A 21468 1 true [SHIFT 5083];
   A 21470 1 true [SHIFT 5068]; A 21472 1 false [SHIFT 5068]; A 21474 1 true [SHIFT 5073];
   A 21476 1 false [SHIFT 3075]; A 21478 1 true [SHIFT 1102]; A 21480 1 true [SHIFT 1418];
   A 21482 2 true [REDUCE sym_declTypes 2 0 0; SHIFT 12416]; A 21485 1 true [SHIFT 1173];
   A 21487 1 false [SHIFT 5074]; A 21489 1 true [SHIFT 5074]; A 21491 1 true [SHIFT 5076];
   A 21493 1 true [SHIFT 15954]; A 21495 1 true [SHIFT 4027];
   A 21497 2 true [REDUCE sym__expr 1 0 0; SHIFT 10128];
   A 21500 2 true [REDUCE sym__expr 1 0 0; SHIFT 2988]; A 21503 1 true [SHIFT 1018];
   A 21505 1 true [SHIFT 8935];
   A 21507 2 true [REDUCE aux_sym_declTypes_repeat1 2 0 0; SHIFT_REPEAT 12305];
   A 21510 2 true [REDUCE aux_sym_declTypes_repeat1 2 0 0; SHIFT_REPEAT 12415];
   A 21513 1 true [SHIFT 4810]; A 21515 1 true [SHIFT 4752]; A 21517 1 false [SHIFT 4752];
   A 21519 1 true [SHIFT 4803]; A 21521 1 true [SHIFT 1193]; A 21523 1 false [SHIFT 4278];
   A 21525 1 true [SHIFT 4278]; A 21527 1 true [SHIFT 4279]; A 21529 1 true [SHIFT 15167];
   A 21531 1 true [SHIFT 3823]; A 21533 1 false [SHIFT 3686]; A 21535 1 false [SHIFT 3155];
   A 21537 1 false [SHIFT 4805]; A 21539 1 true [SHIFT 4805]; A 21541 1 true [SHIFT 4806];
   A 21543 1 true [SHIFT 14720]; A 21545 1 true [SHIFT 8927]; A 21547 1 true [SHIFT 1189];
   A 21549 1 false [SHIFT 4347]; A 21551 1 true [SHIFT 4347]; A 21553 1 true [SHIFT 4352];
   A 21555 1 true [SHIFT 14845]; A 21557 1 true [SHIFT 1027]; A 21559 1 true [SHIFT 8929];
   A 21561 2 true [REDUCE aux_sym_declTypes_repeat1 2 0 0; SHIFT_REPEAT 12061];
   A 21564 2 true [REDUCE aux_sym_declTypes_repeat1 2 0 0; SHIFT_REPEAT 12416];
   A 21567 1 true [SHIFT 488]; A 21569 1 false [SHIFT 4822]; A 21571 1 true [SHIFT 4822];
   A 21573 1 true [SHIFT 4826]; A 21575 1 true [SHIFT 4820]; A 21577 1 false [SHIFT 4820];
   A 21579 1 true [SHIFT 8991]; A 21581 1 true [SHIFT 4821]; A 21583 1 true [SHIFT 4825];
   A 21585 1 true [SHIFT 15072]; A 21587 1 true [REDUCE sym_exprArgs 2 0 0];
   A 21589 1 true [SHIFT 5324]; A 21591 1 true [SHIFT 5321]; A 21593 1 false [SHIFT 5321];
   A 21595 1 true [SHIFT 5316]; A 21597 1 false [SHIFT 5322]; A 21599 1 true [SHIFT 5322];
   A 21601 1 true [SHIFT 5323]; A 21603 1 true [SHIFT 15487]; A 21605 1 true [SHIFT 1096];
   A 21607 1 true [SHIFT 8974]; A 21609 1 true [SHIFT 8980]; A 21611 1 true [SHIFT 3878];
   A 21613 1 false [SHIFT 3537]; A 21615 1 false [SHIFT 3085]; A 21617 1 true [SHIFT 10128];
   A 21619 1 true [SHIFT 9497]; A 21621 1 true [SHIFT 13764]; A 21623 1 false [SHIFT 8608];
   A 21625 1 true [SHIFT 11270]; A 21627 1 true [SHIFT 10551]; A 21629 1 true [SHIFT 10542];
   A 21631 1 true [SHIFT 10571]; A 21633 1 true [SHIFT 14041]; A 21635 1 true [SHIFT 10511];
   A 21637 1 true [SHIFT 12155]; A 21639 1 false [SHIFT 10984]; A 21641 1 true [SHIFT 10984];
   A 21643 1 false [SHIFT 8624]; A 21645 1 true [SHIFT 11304]; A 21647 1 true [SHIFT 10582];
   A 21649 1 true [SHIFT 10587]; A 21651 1 true [SHIFT 10648]; A 21653 1 true [SHIFT 13392];
   A 21655 1 true [SHIFT 11316]; A 21657 1 true [SHIFT 4875]; A 21659 1 true [SHIFT 5211];
   A 21661 1 true [SHIFT 10518]; A 21663 1 true [SHIFT 12345]; A 21665 1 false [SHIFT 11088];
   A 21667 1 true [SHIFT 11088]; A 21669 1 false [SHIFT 8633]; A 21671 1 true [SHIFT 11293];
   A 21673 1 true [SHIFT 10636]; A 21675 1 true [SHIFT 10601]; A 21677 1 true [SHIFT 10688];
   A 21679 1 true [SHIFT 4428]; A 21681 1 true [SHIFT 12906]; A 21683 1 true [SHIFT 12567];
   A 21685 1 true [SHIFT 10353]; A 21687 1 true [SHIFT 12351]; A 21689 1 false [SHIFT 10506];
   A 21691 1 true [SHIFT 10506]; A 21693 1 false [SHIFT 8642]; A 21695 1 true [SHIFT 11312];
   A 21697 1 true [SHIFT 10471]; A 21699 1 true [SHIFT 10466]; A 21701 1 true [SHIFT 10483];
   A 21703 1 true [SHIFT 12690]; A 21705 1 true [SHIFT 9194]; A 21707 1 true [SHIFT 2988];
   A 21709 1 true [SHIFT 9314]; A 21711 1 true [SHIFT 2973]; A 21713 1 true [SHIFT 3011];
   A 21715 1 true [SHIFT 3887]; A 21717 1 false [SHIFT 3568]; A 21719 1 false [SHIFT 3082];
   A 21721 1 true [SHIFT 9181]; A 21723 1 true [SHIFT 10808]; A 21725 1 true [SHIFT 9189];
   A 21727 1 true [SHIFT 6120]; A 21729 1 true [SHIFT 4487]; A 21731 1 true [SHIFT 10952];
   A 21733 1 true [SHIFT 11267]; A 21735 1 true [SHIFT 10689]; A 21737 1 true [SHIFT 10702];
   A 21739 1 true [SHIFT 10743]; A 21741 1 true [SHIFT 10905]; A 21743 1 true [SHIFT 11245];
   A 21745 1 true [SHIFT 11100]; A 21747 1 true [SHIFT 11210]; A 21749 1 true [SHIFT 11113];
   A 21751 1 true [REDUCE sym__typeref 1 0 3]; A 21753 1 true [SHIFT 4388];
   A 21755 1 true [SHIFT 4383]; A 21757 1 true [SHIFT 4662]; A 21759 1 true [SHIFT 9366];
   A 21761 1 true [SHIFT 4464]; A 21763 1 true [SHIFT 9371]; A 21765 1 true [SHIFT 9373];
   A 21767 1 true [SHIFT 3820]; A 21769 1 false [SHIFT 3789]; A 21771 1 false [SHIFT 3159];
   A 21773 1 true [SHIFT 9381]; A 21775 1 true [SHIFT 4397]; A 21777 1 true [SHIFT 4390];
   A 21779 1 false [SHIFT 4390]; A 21781 1 true [SHIFT 4393]; A 21783 1 false [SHIFT 4394];
   A 21785 1 true [SHIFT 4394]; A 21787 1 true [SHIFT 4396]; A 21789 1 true [SHIFT 14884];
   A 21791 1 true [SHIFT 9319]; A 21793 1 true [SHIFT 4927]; A 21795 1 true [SHIFT 4920];
   A 21797 1 false [SHIFT 4920]; A 21799 1 true [SHIFT 4922]; A 21801 1 true [SHIFT 11337];
   A 21803 1 true [SHIFT 9058]; A 21805 1 true [SHIFT 9061]; A 21807 1 true [SHIFT 3915];
   A 21809 1 false [SHIFT 3689]; A 21811 1 false [SHIFT 3094]; A 21813 1 true [SHIFT 9063];
   A 21815 1 true [SHIFT 4508]; A 21817 1 true [SHIFT 5527]; A 21819 1 false [SHIFT 5527];
   A 21821 1 true [SHIFT 4206]; A 21823 1 true [SHIFT 9103]; A 21825 1 true [SHIFT 9106];
   A 21827 1 true [SHIFT 3839]; A 21829 1 false [SHIFT 3555]; A 21831 1 false [SHIFT 3089];
   A 21833 1 true [SHIFT 9110]; A 21835 1 true [SHIFT 4484]; A 21837 1 true [SHIFT 4479];
   A 21839 1 false [SHIFT 4479]; A 21841 1 true [SHIFT 4480]; A 21843 1 false [SHIFT 4481];
   A 21845 1 true [SHIFT 4481]; A 21847 1 true [SHIFT 4482]; A 21849 1 true [SHIFT 14224];
   A 21851 1 false [SHIFT 4743]; A 21853 1 true [SHIFT 4743]; A 21855 1 true [SHIFT 4786];
   A 21857 1 true [SHIFT 14487]; A 21859 1 true [SHIFT 3892]; A 21861 1 true [SHIFT 4035];
   A 21863 1 false [SHIFT 3682]; A 21865 1 false [SHIFT 3077]; A 21867 1 true [SHIFT 9196];
   A 21869 1 true [SHIFT 4788]; A 21871 1 true [SHIFT 4784]; A 21873 1 false [SHIFT 4784];
   A 21875 1 true [SHIFT 4785]; A 21877 1 false [SHIFT 5529]; A 21879 1 true [SHIFT 5529];
   A 21881 1 true [SHIFT 4787]; A 21883 1 true [SHIFT 15748]; A 21885 1 true [SHIFT 3825];
   A 21887 1 true [REDUCE sym_typerefTpl 4 0 60]; A 21889 1 false [SHIFT 4923];
   A 21891 1 true [SHIFT 4923]; A 21893 1 true [SHIFT 4926]; A 21895 1 true [SHIFT 15482];
   A 21897 1 true [SHIFT 3831]; A 21899 1 true [SHIFT 9210]; A 21901 1 true [SHIFT 9212];
   A 21903 1 true [SHIFT 3854]; A 21905 1 false [SHIFT 3573]; A 21907 1 false [SHIFT 3133];
   A 21909 1 true [SHIFT 9216]; A 21911 1 true [SHIFT 4607]; A 21913 1 true [SHIFT 4603];
   A 21915 1 false [SHIFT 4603]; A 21917 1 true [SHIFT 4604]; A 21919 1 true [SHIFT 3933];
   A 21921 1 true [SHIFT 3862]; A 21923 1 false [SHIFT 4605]; A 21925 1 true [SHIFT 4605];
   A 21927 1 true [SHIFT 4606]; A 21929 1 true [SHIFT 15866]; A 21931 1 true [SHIFT 9248];
   A 21933 1 true [SHIFT 9250]; A 21935 1 true [SHIFT 3859]; A 21937 1 false [SHIFT 3633];
   A 21939 1 false [SHIFT 3160]; A 21941 1 true [SHIFT 5921]; A 21943 1 true [SHIFT 4600];
   A 21945 1 true [SHIFT 9253]; A 21947 1 true [SHIFT 4648]; A 21949 1 true [SHIFT 4641];
   A 21951 1 false [SHIFT 4641]; A 21953 1 true [SHIFT 4644]; A 21955 1 false [SHIFT 4645];
   A 21957 1 true [SHIFT 4645]; A 21959 1 true [SHIFT 4647]; A 21961 1 true [SHIFT 14249];
   A 21963 1 true [SHIFT 3818]; A 21965 1 true [SHIFT 9322]; A 21967 1 true [SHIFT 9324];
   A 21969 1 true [SHIFT 3874]; A 21971 1 false [SHIFT 3517]; A 21973 1 false [SHIFT 3072];
   A 21975 1 true [SHIFT 4749]; A 21977 1 true [SHIFT 4813]; A 21979 1 true [SHIFT 9327];
   A 21981 1 true [SHIFT 4759]; A 21983 1 true [SHIFT 4751]; A 21985 1 false [SHIFT 4751];
   A 21987 1 true [SHIFT 4754]; A 21989 1 true [SHIFT 4848]; A 21991 1 true [SHIFT 4883];
   A 21993 1 true [SHIFT 4912]; A 21995 1 true [SHIFT 4949]; A 21997 1 true [SHIFT 4987];
   A 21999 1 false [SHIFT 4755]; A 22001 1 true [SHIFT 4755]; A 22003 1 true [SHIFT 4758];
   A 22005 1 true [SHIFT 14901]; A 22007 1 true [SHIFT 5007]; A 22009 1 true [SHIFT 5022];
   A 22011 1 true [SHIFT 5036]; A 22013 1 true [SHIFT 5050]; A 22015 1 true [SHIFT 5063];
   A 22017 1 true [SHIFT 5079]; A 22019 1 true [SHIFT 5092]; A 22021 1 true [SHIFT 5104];
   A 22023 1 true [SHIFT 5114]; A 22025 1 true [SHIFT 5124]; A 22027 1 true [SHIFT 5135];
   A 22029 1 true [SHIFT 5146]; A 22031 1 true [SHIFT 5158]; A 22033 1 true [SHIFT 5168];
   A 22035 1 true [SHIFT 5179]; A 22037 1 true [SHIFT 5188]; A 22039 1 true [SHIFT 5197];
   A 22041 1 true [SHIFT 5206]; A 22043 1 true [SHIFT 5217]; A 22045 1 true [SHIFT 5226];
   A 22047 1 true [SHIFT 5235]; A 22049 1 true [SHIFT 5313]; A 22051 1 true [SHIFT 5336];
   A 22053 1 true [SHIFT 5351]; A 22055 1 true [SHIFT 5365]; A 22057 1 true [SHIFT 5377];
   A 22059 1 true [SHIFT 5389]; A 22061 1 true [SHIFT 5397]; A 22063 1 true [SHIFT 2191];
   A 22065 1 true [SHIFT 2679]; A 22067 1 true [SHIFT 4818]; A 22069 1 true [SHIFT 16003];
   A 22071 1 true [SHIFT 2248]; A 22073 1 true [SHIFT 2252]; A 22075 1 true [SHIFT 2318];
   A 22077 1 true [SHIFT 2323]; A 22079 1 true [SHIFT 2249]; A 22081 1 true [SHIFT 2162];
   A 22083 1 true [SHIFT 2204]; A 22085 1 true [SHIFT 2206];
   A 22087 1 true [REDUCE sym_caseCase 2 0 131]; A 22089 1 false [REDUCE sym_caseCase 2 0 131];
   A 22091 1 true [SHIFT 6076]; A 22093 1 true [SHIFT 4544]; A 22095 1 true [SHIFT 3984];
   A 22097 1 false [SHIFT 3612]; A 22099 1 false [SHIFT 3092]; A 22101 1 true [SHIFT 13236];
   A 22103 1 true [SHIFT 4858]; A 22105 1 true [SHIFT 15499]; A 22107 1 false [SHIFT 3105];
   A 22109 1 true [SHIFT 815]; A 22111 1 true [SHIFT 2336]; A 22113 1 true [SHIFT 2149];
   A 22115 1 true [SHIFT 6230]; A 22117 1 true [SHIFT 4407]; A 22119 1 true [SHIFT 2175];
   A 22121 1 true [SHIFT 2177]; A 22123 1 true [SHIFT 2183]; A 22125 1 true [SHIFT 2185];
   A 22127 1 true [SHIFT 2194]; A 22129 1 true [SHIFT 2196]; A 22131 1 true [SHIFT 9064];
   A 22133 1 true [SHIFT 821]; A 22135 1 true [SHIFT 2257]; A 22137 1 true [SHIFT 2261];
   A 22139 1 true [SHIFT 2731]; A 22141 1 true [SHIFT 4889]; A 22143 1 true [SHIFT 14409];
   A 22145 1 true [SHIFT 686]; A 22147 1 true [SHIFT 697]; A 22149 1 true [SHIFT 2733];
   A 22151 1 true [SHIFT 4492]; A 22153 1 true [SHIFT 14928]; A 22155 1 true [SHIFT 749];
   A 22157 1 true [SHIFT 764]; A 22159 1 true [SHIFT 730]; A 22161 1 true [SHIFT 1450];
   A 22163 1 true [SHIFT 1647]; A 22165 1 true [SHIFT 1656]; A 22167 1 true [SHIFT 4623];
   A 22169 1 true [SHIFT 4613]; A 22171 1 false [SHIFT 4613]; A 22173 1 true [SHIFT 9536];
   A 22175 1 true [SHIFT 4616]; A 22177 1 true [SHIFT 1673]; A 22179 1 true [SHIFT 1675];
   A 22181 1 true [SHIFT 1682]; A 22183 1 true [SHIFT 1685]; A 22185 1 true [SHIFT 1596];
   A 22187 1 true [SHIFT 1578]; A 22189 1 true [SHIFT 741]; A 22191 1 true [SHIFT 6161];
   A 22193 1 true [SHIFT 4472]; A 22195 1 true [SHIFT 2653]; A 22197 1 true [SHIFT 4921];
   A 22199 1 true [SHIFT 14963]; A 22201 1 true [SHIFT 6016]; A 22203 1 true [SHIFT 4570];
   A 22205 1 true [SHIFT 9083]; A 22207 1 true [SHIFT 9086]; A 22209 1 true [SHIFT 1608];
   A 22211 1 true [SHIFT 1611]; A 22213 1 true [SHIFT 1627]; A 22215 1 true [SHIFT 1629];
   A 22217 1 true [SHIFT 1643]; A 22219 1 true [SHIFT 1645]; A 22221 1 true [SHIFT 1652];
   A 22223 1 true [SHIFT 1654]; A 22225 1 true [SHIFT 6039]; A 22227 1 true [SHIFT 1182];
   A 22229 1 true [SHIFT 4226]; A 22231 1 true [SHIFT 4221]; A 22233 1 false [SHIFT 4221];
   A 22235 1 true [SHIFT 4222]; A 22237 1 true [SHIFT 1287]; A 22239 1 true [SHIFT 4760];
   A 22241 1 true [SHIFT 15540]; A 22243 1 true [SHIFT 4391]; A 22245 1 true [SHIFT 5952];
   A 22247 1 true [SHIFT 1602]; A 22249 1 true [SHIFT 1541]; A 22251 1 true [SHIFT 1565];
   A 22253 1 true [SHIFT 1567]; A 22255 1 true [SHIFT 1573]; A 22257 1 true [SHIFT 5978];
   A 22259 1 true [SHIFT 5980]; A 22261 1 true [SHIFT 1575]; A 22263 1 true [SHIFT 1583];
   A 22265 1 true [SHIFT 1585]; A 22267 1 true [SHIFT 6003]; A 22269 1 true [SHIFT 6060];
   A 22271 1 false [SHIFT 4618]; A 22273 1 true [SHIFT 4618]; A 22275 1 true [SHIFT 4622];
   A 22277 1 true [SHIFT 14237]; A 22279 1 true [SHIFT 2513]; A 22281 1 true [SHIFT 4992];
   A 22283 1 true [SHIFT 15702]; A 22285 1 true [SHIFT 1157]; A 22287 1 true [SHIFT 5009];
   A 22289 1 true [SHIFT 15998]; A 22291 1 true [SHIFT 2279]; A 22293 1 false [SHIFT 4223];
   A 22295 1 true [SHIFT 4223]; A 22297 1 true [SHIFT 4225]; A 22299 1 true [SHIFT 15924];
   A 22301 1 true [SHIFT 9527]; A 22303 1 true [SHIFT 9529]; A 22305 1 true [SHIFT 2289];
   A 22307 1 true [SHIFT 2660]; A 22309 1 true [SHIFT 5024]; A 22311 1 true [SHIFT 14683];
   A 22313 1 true [SHIFT 11241]; A 22315 1 true [REDUCE aux_sym_legacyFormat_repeat1 2 0 0];
   A 22317 1 true [SHIFT 2657]; A 22319 1 true [SHIFT 5038]; A 22321 1 true [SHIFT 15247];
   A 22323 1 true [SHIFT 2322]; A 22325 1 true [SHIFT 5052]; A 22327 1 true [SHIFT 14821];
   A 22329 1 true [SHIFT 2167]; A 22331 1 true [SHIFT 5065]; A 22333 1 true [SHIFT 15594];
   A 22335 1 true [REDUCE aux_sym_declExport_repeat1 2 0 0]; A 22337 1 true [SHIFT 2241];
   A 22339 1 true [SHIFT 5081]; A 22341 1 true [SHIFT 14388]; A 22343 1 true [SHIFT 946];
   A 22345 1 true [SHIFT 2327]; A 22347 1 true [SHIFT 12785]; A 22349 1 true [SHIFT 4513];
   A 22351 1 true [SHIFT 2332]; A 22353 1 true [SHIFT 2275]; A 22355 1 true [SHIFT 2573];
   A 22357 1 true [SHIFT 4956]; A 22359 1 true [SHIFT 15292]; A 22361 1 true [SHIFT 14023];
   A 22363 1 true [SHIFT 4671]; A 22365 1 true [SHIFT 10095]; A 22367 1 true [SHIFT 5977];
   A 22369 1 true [SHIFT 4863]; A 22371 1 true [SHIFT 6086]; A 22373 1 true [SHIFT 5948];
   A 22375 1 true [SHIFT 8619]; A 22377 1 true [SHIFT 9347]; A 22379 1 false [SHIFT 4442];
   A 22381 1 true [SHIFT 4442]; A 22383 1 true [SHIFT 4447]; A 22385 1 true [SHIFT 4439];
   A 22387 1 false [SHIFT 4439]; A 22389 1 true [SHIFT 4443]; A 22391 1 true [SHIFT 15228];
   A 22393 1 true [SHIFT 9332]; A 22395 1 true [SHIFT 6572]; A 22397 1 true [SHIFT 4682];
   A 22399 1 true [REDUCE sym_declVariant 6 0 229];
   A 22401 1 true [REDUCE aux_sym_declVariant_repeat1 2 0 0];
   A 22403 1 false [REDUCE aux_sym_declVariant_repeat1 2 0 0]; A 22405 1 true [SHIFT 6615];
   A 22407 1 true [SHIFT 9001]; A 22409 1 true [REDUCE sym_procAttribute 2 0 53];
   A 22411 1 true [SHIFT 8708]; A 22413 1 true [REDUCE sym_procAttribute 3 0 0];
   A 22415 1 true [SHIFT 8313]; A 22417 1 true [REDUCE sym_procAttribute 2 0 0];
   A 22419 1 true [SHIFT 8485]; A 22421 1 true [SHIFT 7903];
   A 22423 1 true [REDUCE sym_declVariant 5 0 229]; A 22425 1 true [SHIFT 12665];
   A 22427 1 true [SHIFT 6019]; A 22429 1 true [SHIFT 9988]; A 22431 1 true [SHIFT 15595];
   A 22433 1 true [SHIFT 9000]; A 22435 1 true [SHIFT 12577]; A 22437 1 true [SHIFT 7499];
   A 22439 1 true [SHIFT 14773]; A 22441 1 true [SHIFT 14816]; A 22443 1 true [SHIFT 6094];
   A 22445 1 true [SHIFT 6029]; A 22447 1 true [SHIFT 6030]; A 22449 1 true [SHIFT 14796];
   A 22451 1 true [SHIFT 6095]; A 22453 1 true [SHIFT 7506];
   A 22455 2 true [REDUCE aux_sym_declConsts_repeat1 2 0 0; SHIFT_REPEAT 12665];
   A 22458 1 true [SHIFT 7675]; A 22460 1 true [SHIFT 15914]; A 22462 1 true [SHIFT 15942];
   A 22464 1 true [SHIFT 7235]; A 22466 1 true [SHIFT 6403]; A 22468 1 true [SHIFT 4528];
   A 22470 1 true [SHIFT 7241]; A 22472 1 true [SHIFT 9014]; A 22474 1 true [SHIFT 12456];
   A 22476 1 true [SHIFT 6509]; A 22478 1 true [SHIFT 4589]; A 22480 1 true [SHIFT 14962];
   A 22482 1 true [SHIFT 9079]; A 22484 1 true [SHIFT 12580]; A 22486 1 true [SHIFT 12581];
   A 22488 1 true [SHIFT 7609]; A 22490 1 true [SHIFT 9128];
   A 22492 1 true [REDUCE sym_declVariant 8 0 291]; A 22494 1 true [SHIFT 7709];
   A 22496 1 true [SHIFT 7717]; A 22498 1 true [SHIFT 7082]; A 22500 1 true [SHIFT 12606];
   A 22502 1 true [SHIFT 8868];
   A 22504 2 true [REDUCE aux_sym_declConsts_repeat1 2 0 0; SHIFT_REPEAT 12606];
   A 22507 1 true [SHIFT 8906]; A 22509 1 true [SHIFT 7085]; A 22511 1 true [SHIFT 8052];
   A 22513 1 true [SHIFT 8089]; A 22515 1 true [SHIFT 8945]; A 22517 1 true [SHIFT 7619];
   A 22519 1 true [SHIFT 9002]; A 22521 1 true [SHIFT 9567]; A 22523 1 true [SHIFT 7876];
   A 22525 1 true [SHIFT 8115]; A 22527 1 true [SHIFT 8531]; A 22529 1 true [SHIFT 7890];
   A 22531 1 true [SHIFT 9380]; A 22533 1 true [SHIFT 8555]; A 22535 1 true [SHIFT 9377];
   A 22537 1 true [SHIFT 7960]; A 22539 1 true [SHIFT 8131]; A 22541 1 true [SHIFT 7926];
   A 22543 1 true [SHIFT 3663]; A 22545 1 true [SHIFT 9168]; A 22547 1 true [SHIFT 3491];
   A 22549 1 true [SHIFT 7902]; A 22551 1 true [SHIFT 7810]; A 22553 1 true [SHIFT 7728];
   A 22555 1 true [SHIFT 7586]; A 22557 1 true [SHIFT 7637]; A 22559 1 true [SHIFT 7593];
   A 22561 1 true [SHIFT 9260]; A 22563 1 true [SHIFT 7797]; A 22565 1 true [SHIFT 8375];
   A 22567 1 true [SHIFT 6163]; A 22569 1 true [SHIFT 8430]; A 22571 1 true [SHIFT 6974];
   A 22573 1 true [SHIFT 4642]; A 22575 1 true [SHIFT 5846]; A 22577 1 true [SHIFT 4610];
   A 22579 1 true [SHIFT 7439]; A 22581 1 true [SHIFT 7652]; A 22583 1 true [SHIFT 7931];
   A 22585 1 true [REDUCE sym_guid 3 0 0]; A 22587 1 true [REDUCE sym_declVariant 7 0 291];
   A 22589 1 true [SHIFT 8725]; A 22591 1 true [SHIFT 8745]; A 22593 1 true [SHIFT 7452];
   A 22595 1 true [SHIFT 9116]; A 22597 1 true [SHIFT 8416]; A 22599 1 true [SHIFT 6298];
   A 22601 1 true [SHIFT 9521]; A 22603 1 true [SHIFT 6449]; A 22605 1 true [SHIFT 4659];
   A 22607 1 true [SHIFT 9224]; A 22609 1 true [SHIFT 7118]; A 22611 1 true [SHIFT 9295];
   A 22613 1 true [SHIFT 8184]; A 22615 1 true [SHIFT 6328]; A 22617 1 true [SHIFT 8239];
   A 22619 1 true [SHIFT 7124]; A 22621 1 true [SHIFT 15688];
   A 22623 2 true [REDUCE aux_sym_declConsts_repeat1 2 0 0; SHIFT_REPEAT 12577];
   A 22626 1 true [SHIFT 15698]; A 22628 1 true [SHIFT 4619]; A 22630 1 true [SHIFT 8503];
   A 22632 1 true [SHIFT 6316]; A 22634 1 true [SHIFT 7528]; A 22636 1 true [SHIFT 8534];
   A 22638 1 true [SHIFT 4354]; A 22640 1 true [SHIFT 8190]; A 22642 1 true [SHIFT 8814];
   A 22644 1 true [SHIFT 5964]; A 22646 1 true [SHIFT 4500]; A 22648 1 true [SHIFT 8822];
   A 22650 1 true [SHIFT 7006]; A 22652 1 true [SHIFT 13221]; A 22654 1 true [SHIFT 4690];
   A 22656 1 true [SHIFT 9028]; A 22658 1 true [SHIFT 6995]; A 22660 1 true [SHIFT 6229];
   A 22662 1 true [SHIFT 4625]; A 22664 1 true [SHIFT 8886]; A 22666 1 true [SHIFT 8894];
   A 22668 1 true [SHIFT 9036]; A 22670 1 true [SHIFT 7673]; A 22672 1 true [SHIFT 7551];
   A 22674 1 true [SHIFT 1344]; A 22676 1 true [SHIFT 4449]; A 22678 1 true [SHIFT 8690];
   A 22680 1 true [SHIFT 15910]; A 22682 1 true [SHIFT 4665]; A 22684 1 true [SHIFT 7362];
   A 22686 1 true [SHIFT 8216]; A 22688 1 true [SHIFT 8714]; A 22690 1 true [SHIFT 7179];
   A 22692 1 true [SHIFT 7539]; A 22694 1 true [SHIFT 7185]; A 22696 1 true [SHIFT 1294];
   A 22698 1 true [SHIFT 4563]; A 22700 1 true [SHIFT 8946]; A 22702 1 true [SHIFT 7672];
   A 22704 1 true [SHIFT 7778]; A 22706 1 true [SHIFT 6619]; A 22708 1 true [SHIFT 14795];
   A 22710 1 true [SHIFT 3469]; A 22712 1 true [SHIFT 9277]; A 22714 1 true [SHIFT 8232];
   A 22716 1 true [SHIFT 8300]; A 22718 1 true [SHIFT 7281]; A 22720 1 true [SHIFT 8731];
   A 22722 1 true [SHIFT 6334]; A 22724 1 true [SHIFT 8744]; A 22726 1 true [SHIFT 6146];
   A 22728 1 true [SHIFT 7290]; A 22730 1 true [SHIFT 9115]; A 22732 1 true [SHIFT 9133];
   A 22734 1 true [SHIFT 4631]; A 22736 1 true [REDUCE sym_range 3 0 0];
   A 22738 1 true [SHIFT 8330]; A 22740 1 true [SHIFT 8344]; A 22742 1 true [SHIFT 6188];
   A 22744 1 true [SHIFT 7857]; A 22746 1 true [SHIFT 8387]; A 22748 1 true [SHIFT 9331];
   A 22750 1 true [SHIFT 8404]; A 22752 1 true [SHIFT 6329]; A 22754 1 true [SHIFT 9232];
   A 22756 1 true [SHIFT 8350]; A 22758 1 true [SHIFT 14546]; A 22760 1 true [SHIFT 14718];
   A 22762 1 true [SHIFT 4685]; A 22764 1 true [SHIFT 9220]; A 22766 1 true [SHIFT 8726];
   A 22768 1 true [SHIFT 1164]; A 22770 1 true [SHIFT 15224]; A 22772 1 true [SHIFT 6368];
   A 22774 1 true [SHIFT 10057]; A 22776 1 true [SHIFT 1132];
   A 22778 1 true [REDUCE sym_declField 6 0 132]; A 22780 1 true [SHIFT 2626];
   A 22782 1 true [SHIFT 15111]; A 22784 1 true [SHIFT 1461]; A 22786 1 true [SHIFT 1059];
   A 22788 1 true [SHIFT 855]; A 22790 1 true [SHIFT 6491]; A 22792 1 true [SHIFT 6492];
   A 22794 1 true [REDUCE sym_declField 5 0 66]; A 22796 1 true [SHIFT 1371];
   A 22798 1 true [SHIFT 14174]; A 22800 1 true [SHIFT 1168]; A 22802 1 true [SHIFT 2706];
   A 22804 1 true [SHIFT 14632]; A 22806 1 true [SHIFT 1465]; A 22808 1 true [SHIFT 1336];
   A 22810 1 true [SHIFT 6441]; A 22812 1 true [SHIFT 14191]; A 22814 1 true [SHIFT 1121];
   A 22816 1 true [SHIFT 14177]; A 22818 1 true [SHIFT 6686];
   A 22820 1 true [REDUCE sym_declField 4 0 94]; A 22822 1 true [SHIFT 1112];
   A 22824 1 true [SHIFT 6688]; A 22826 1 true [SHIFT 14483]; A 22828 1 true [SHIFT 2476];
   A 22830 1 true [SHIFT 15354]; A 22832 1 true [SHIFT 14485]; A 22834 1 true [SHIFT 1199];
   A 22836 1 true [SHIFT 1171]; A 22838 1 true [SHIFT 1176]; A 22840 1 true [SHIFT 1453];
   A 22842 1 true [SHIFT 1417]; A 22844 1 true [SHIFT 2637]; A 22846 1 true [SHIFT 15272];
   A 22848 1 true [SHIFT 4435]; A 22850 1 true [SHIFT 493]; A 22852 1 true [SHIFT 1162];
   A 22854 1 true [SHIFT 2640]; A 22856 1 true [SHIFT 15643]; A 22858 1 true [SHIFT 1462];
   A 22860 1 true [SHIFT 497]; A 22862 1 true [SHIFT 1088]; A 22864 1 true [SHIFT 1123];
   A 22866 1 true [SHIFT 14066]; A 22868 1 true [SHIFT 1014]; A 22870 1 true [SHIFT 2494];
   A 22872 1 true [SHIFT 15406]; A 22874 1 true [SHIFT 6467]; A 22876 1 true [SHIFT 941];
   A 22878 1 true [SHIFT 1408]; A 22880 1 true [SHIFT 1138]; A 22882 1 true [SHIFT 1421];
   A 22884 1 true [SHIFT 4886]; A 22886 1 true [SHIFT 1067]; A 22888 1 true [SHIFT 991];
   A 22890 1 true [SHIFT 2702]; A 22892 1 true [SHIFT 14491]; A 22894 1 true [SHIFT 1016];
   A 22896 1 true [SHIFT 1041]; A 22898 1 true [SHIFT 2651]; A 22900 1 true [SHIFT 15612];
   A 22902 1 true [SHIFT 13404]; A 22904 1 true [SHIFT 15700]; A 22906 1 true [SHIFT 4917];
   A 22908 1 true [SHIFT 2619]; A 22910 1 true [SHIFT 15801]; A 22912 1 true [SHIFT 866];
   A 22914 1 true [SHIFT 2681]; A 22916 1 true [SHIFT 14421]; A 22918 1 true [SHIFT 6344];
   A 22920 1 true [SHIFT 6240]; A 22922 1 true [SHIFT 6364]; A 22924 1 true [SHIFT 6372];
   A 22926 1 true [SHIFT 5883]; A 22928 1 true [SHIFT 2685]; A 22930 1 true [SHIFT 14536];
   A 22932 1 true [SHIFT 1367]; A 22934 1 true [SHIFT 1184]; A 22936 1 true [SHIFT 6612];
   A 22938 1 true [SHIFT 1070]; A 22940 1 true [SHIFT 1047]; A 22942 1 true [SHIFT 13015];
   A 22944 1 true [SHIFT 1404]; A 22946 1 true [SHIFT 4756]; A 22948 1 true [SHIFT 14092];
   A 22950 1 true [SHIFT 868]; A 22952 1 true [SHIFT 1413]; A 22954 1 true [SHIFT 6253];
   A 22956 1 true [SHIFT 6254]; A 22958 1 true [SHIFT 14093]; A 22960 1 true [SHIFT 4954];
   A 22962 1 true [SHIFT 943]; A 22964 1 true [SHIFT 1234]; A 22966 1 true [SHIFT 15418];
   A 22968 1 true [SHIFT 2693]; A 22970 1 true [SHIFT 14639]
  ].

Definition ts_parse_actions_22972 : list (Z * list TSParseActionEntry) :=
  [
   A 22972 1 true [SHIFT 1298]; A 22974 1 true [SHIFT 1457]; A 22976 1 true [SHIFT 1051];
   A 22978 1 true [SHIFT 1187]; A 22980 1 true [SHIFT 1008]; A 22982 1 true [SHIFT 1403];
   A 22984 1 true [SHIFT 2331]; A 22986 1 true [SHIFT 14909]; A 22988 1 true [SHIFT 1197];
   A 22990 1 true [SHIFT 2337]; A 22992 1 true [SHIFT 14965]; A 22994 1 true [SHIFT 1075];
   A 22996 1 true [SHIFT 999]; A 22998 1 true [SHIFT 1078]; A 23000 1 true [SHIFT 5890];
   A 23002 1 true [SHIFT 5916]; A 23004 1 true [SHIFT 1022]; A 23006 1 true [SHIFT 2683];
   A 23008 1 true [SHIFT 15309]; A 23010 1 true [SHIFT 13006]; A 23012 1 true [SHIFT 964];
   A 23014 1 true [SHIFT 4989]; A 23016 1 true [SHIFT 2188]; A 23018 1 true [SHIFT 15716];
   A 23020 1 true [SHIFT 6645]; A 23022 1 true [SHIFT 2244]; A 23024 1 true [SHIFT 15764];
   A 23026 1 true [SHIFT 6596]; A 23028 1 true [SHIFT 689]; A 23030 1 true [SHIFT 1442];
   A 23032 1 true [SHIFT 481]; A 23034 1 true [SHIFT 6598]; A 23036 1 true [SHIFT 1136];
   A 23038 1 true [SHIFT 484]; A 23040 1 true [SHIFT 2245]; A 23042 1 true [SHIFT 14510];
   A 23044 1 true [SHIFT 13708]; A 23046 1 true [SHIFT 2277]; A 23048 1 true [SHIFT 14581];
   A 23050 1 true [SHIFT 4815]; A 23052 1 true [SHIFT 5815];
   A 23054 2 true [REDUCE aux_sym__classDeclarations 1 0 0; REDUCE aux_sym__declFields 1 0 0];
   A 23057 1 true [REDUCE aux_sym__declFields 1 0 0]; A 23059 1 true [SHIFT 1098];
   A 23061 1 true [SHIFT 16000]; A 23063 1 true [SHIFT 1471]; A 23065 1 true [SHIFT 1001];
   A 23067 1 true [SHIFT 1305]; A 23069 1 true [SHIFT 1093]; A 23071 1 true [SHIFT 1410];
   A 23073 1 true [SHIFT 1203]; A 23075 1 true [SHIFT 2475]; A 23077 1 true [SHIFT 15779];
   A 23079 1 true [SHIFT 989]; A 23081 1 true [SHIFT 1066]; A 23083 1 true [SHIFT 1248];
   A 23085 1 true [SHIFT 1149]; A 23087 1 true [SHIFT 2485]; A 23089 1 true [SHIFT 15821];
   A 23091 1 true [SHIFT 973]; A 23093 1 true [SHIFT 4855]; A 23095 1 true [SHIFT 6353];
   A 23097 1 true [SHIFT 13111]; A 23099 1 true [SHIFT 15844]; A 23101 1 true [SHIFT 979];
   A 23103 1 true [SHIFT 949]; A 23105 1 true [SHIFT 1445]; A 23107 1 true [SHIFT 1155];
   A 23109 1 true [SHIFT 1057]; A 23111 1 true [SHIFT 5831]; A 23113 1 true [SHIFT 5832];
   A 23115 1 true [SHIFT 1422]; A 23117 1 true [SHIFT 1030]; A 23119 1 true [SHIFT 951];
   A 23121 1 true [SHIFT 1084]; A 23123 1 true [SHIFT 1160]; A 23125 1 true [SHIFT 14809];
   A 23127 1 true [SHIFT 1110]; A 23129 1 true [REDUCE sym_declField 5 0 147];
   A 23131 1 true [SHIFT 1038]; A 23133 1 true [SHIFT 1254]; A 23135 1 true [SHIFT 14187];
   A 23137 1 true [SHIFT 1042]; A 23139 1 true [SHIFT 2658]; A 23141 1 true [SHIFT 15052];
   A 23143 1 true [SHIFT 5136]; A 23145 1 true [SHIFT 1402]; A 23147 1 true [SHIFT 1048];
   A 23149 1 true [SHIFT 4984]; A 23151 1 true [SHIFT 1065]; A 23153 1 true [SHIFT 8692];
   A 23155 1 true [SHIFT 12556]; A 23157 1 true [SHIFT 10871]; A 23159 1 true [SHIFT 1071];
   A 23161 1 true [SHIFT 1429]; A 23163 1 true [SHIFT 486]; A 23165 1 true [SHIFT 5378];
   A 23167 1 true [SHIFT 5185]; A 23169 1 true [SHIFT 1054]; A 23171 1 true [SHIFT 1119];
   A 23173 1 true [SHIFT 2806]; A 23175 1 true [SHIFT 1152]; A 23177 1 true [SHIFT 1401];
   A 23179 1 true [SHIFT 1074]; A 23181 1 true [SHIFT 1154]; A 23183 1 true [SHIFT 7282];
   A 23185 1 true [SHIFT 1128]; A 23187 1 true [SHIFT 8331]; A 23189 1 true [SHIFT 1435];
   A 23191 1 true [SHIFT 1080]; A 23193 1 true [SHIFT 5015]; A 23195 1 true [SHIFT 1120];
   A 23197 1 true [SHIFT 2848]; A 23199 1 true [SHIFT 1095]; A 23201 1 true [SHIFT 1060];
   A 23203 1 true [SHIFT 1179]; A 23205 1 true [SHIFT 1416]; A 23207 1 true [SHIFT 4560];
   A 23209 1 true [SHIFT 1083]; A 23211 1 true [SHIFT 977]; A 23213 1 true [SHIFT 5942];
   A 23215 1 true [SHIFT 998]; A 23217 1 true [SHIFT 1024]; A 23219 1 true [SHIFT 7440];
   A 23221 1 true [SHIFT 8620]; A 23223 1 true [SHIFT 1148]; A 23225 1 true [SHIFT 1424];
   A 23227 1 true [REDUCE aux_sym_arrInitializer_repeat1 2 0 0];
   A 23229 1 false [REDUCE aux_sym_arrInitializer_repeat1 2 0 0]; A 23231 1 true [SHIFT 1089];
   A 23233 1 true [REDUCE aux_sym_recInitializer_repeat1 2 0 0];
   A 23235 1 false [REDUCE aux_sym_recInitializer_repeat1 2 0 0]; A 23237 1 true [SHIFT 1000];
   A 23239 1 true [SHIFT 1198]; A 23241 1 true [SHIFT 4895]; A 23243 1 true [SHIFT 8388];
   A 23245 1 true [SHIFT 1101]; A 23247 1 true [SHIFT 2841]; A 23249 1 true [SHIFT 919];
   A 23251 1 true [SHIFT 1196]; A 23253 1 true [SHIFT 1441]; A 23255 1 true [SHIFT 1069];
   A 23257 1 true [SHIFT 8332]; A 23259 1 true [SHIFT 988]; A 23261 1 true [SHIFT 4211];
   A 23263 1 true [SHIFT 1011]; A 23265 1 true [SHIFT 1079]; A 23267 1 true [SHIFT 1448];
   A 23269 1 true [SHIFT 7500]; A 23271 1 true [SHIFT 4596]; A 23273 1 true [SHIFT 1002];
   A 23275 1 true [SHIFT 1012]; A 23277 1 true [SHIFT 2801]; A 23279 1 true [SHIFT 4991];
   A 23281 1 true [SHIFT 1205]; A 23283 1 true [SHIFT 1460]; A 23285 1 true [SHIFT 4381];
   A 23287 1 true [SHIFT 578]; A 23289 1 true [SHIFT 7236]; A 23291 1 true [SHIFT 969];
   A 23293 1 true [SHIFT 7858]; A 23295 1 true [SHIFT 1104]; A 23297 1 true [SHIFT 4496];
   A 23299 1 true [SHIFT 1467]; A 23301 1 true [SHIFT 9221]; A 23303 1 true [SHIFT 890];
   A 23305 1 true [SHIFT 1087]; A 23307 1 true [SHIFT 2771]; A 23309 1 true [SHIFT 1044];
   A 23311 1 true [SHIFT 5373]; A 23313 1 true [SHIFT 1458]; A 23315 1 true [SHIFT 2824];
   A 23317 1 true [SHIFT 9080]; A 23319 1 true [SHIFT 1043]; A 23321 1 true [SHIFT 948];
   A 23323 1 true [SHIFT 4627]; A 23325 1 true [SHIFT 5203]; A 23327 1 true [SHIFT 1099];
   A 23329 1 true [SHIFT 9226]; A 23331 1 true [SHIFT 7710]; A 23333 1 true [SHIFT 4737];
   A 23335 1 true [SHIFT 1423]; A 23337 1 true [SHIFT 1124]; A 23339 1 true [SHIFT 2768];
   A 23341 1 true [SHIFT 1106]; A 23343 1 true [SHIFT 1166]; A 23345 1 true [SHIFT 8871];
   A 23347 1 true [SHIFT 468]; A 23349 1 true [SHIFT 2831]; A 23351 1 true [SHIFT 952];
   A 23353 1 true [SHIFT 4880]; A 23355 1 true [SHIFT 865]; A 23357 1 true [SHIFT 1108];
   A 23359 1 true [SHIFT 2849]; A 23361 1 true [SHIFT 4405]; A 23363 1 true [SHIFT 8053];
   A 23365 1 true [SHIFT 4462]; A 23367 1 true [SHIFT 2785]; A 23369 1 true [SHIFT 9261];
   A 23371 1 true [SHIFT 5445]; A 23373 1 true [SHIFT 2810]; A 23375 1 true [SHIFT 1115];
   A 23377 1 true [SHIFT 2842]; A 23379 1 true [SHIFT 869]; A 23381 1 true [SHIFT 4663];
   A 23383 1 true [SHIFT 839]; A 23385 1 true [SHIFT 4983];
   A 23387 1 true [REDUCE aux_sym_declArray_repeat1 2 0 0];
   A 23389 1 false [REDUCE aux_sym_declArray_repeat1 2 0 0]; A 23391 1 true [SHIFT 2822];
   A 23393 1 true [SHIFT 1129]; A 23395 1 true [SHIFT 1117]; A 23397 1 true [SHIFT 2826];
   A 23399 1 true [SHIFT 1167]; A 23401 1 true [SHIFT 8532]; A 23403 1 true [SHIFT 530];
   A 23405 1 true [SHIFT 1105]; A 23407 1 true [SHIFT 5495]; A 23409 1 true [SHIFT 9568];
   A 23411 1 true [SHIFT 2782]; A 23413 1 true [SHIFT 1118]; A 23415 1 true [SHIFT 8505];
   A 23417 1 true [SHIFT 7980]; A 23419 1 true [SHIFT 7877]; A 23421 1 true [SHIFT 5108];
   A 23423 1 true [SHIFT 2850]; A 23425 1 true [SHIFT 3664]; A 23427 1 true [SHIFT 2843];
   A 23429 1 true [SHIFT 1113]; A 23431 1 true [SHIFT 5361]; A 23433 1 true [SHIFT 1006];
   A 23435 1 true [SHIFT 2832]; A 23437 1 true [SHIFT 1077]; A 23439 1 true [SHIFT 4697];
   A 23441 1 true [SHIFT 2774]; A 23443 1 true [SHIFT 1007]; A 23445 1 true [SHIFT 2780];
   A 23447 1 true [SHIFT 2792]; A 23449 1 true [SHIFT 1436]; A 23451 1 true [SHIFT 1177];
   A 23453 1 true [SHIFT 4210]; A 23455 1 true [SHIFT 1172]; A 23457 1 true [SHIFT 1192];
   A 23459 1 true [SHIFT 2798]; A 23461 1 true [SHIFT 1208]; A 23463 1 true [SHIFT 4441];
   A 23465 1 true [SHIFT 7529]; A 23467 1 true [SHIFT 2807]; A 23469 1 true [SHIFT 7587];
   A 23471 1 true [SHIFT 11988]; A 23473 1 true [SHIFT 8301]; A 23475 1 true [SHIFT 1143];
   A 23477 1 true [SHIFT 2813]; A 23479 1 true [SHIFT 4224]; A 23481 1 true [SHIFT 2819];
   A 23483 1 true [SHIFT 4807]; A 23485 1 true [SHIFT 2829]; A 23487 1 true [SHIFT 2837];
   A 23489 1 true [SHIFT 978]; A 23491 1 true [SHIFT 5138]; A 23493 1 true [SHIFT 1147];
   A 23495 1 true [SHIFT 4244]; A 23497 1 true [SHIFT 4229]; A 23499 1 true [SHIFT 1142];
   A 23501 1 true [SHIFT 1013]; A 23503 1 true [REDUCE aux_sym_with_repeat1 2 0 44];
   A 23505 1 false [REDUCE aux_sym_with_repeat1 2 0 44]; A 23507 1 true [SHIFT 1156];
   A 23509 1 true [SHIFT 4255]; A 23511 1 true [SHIFT 9029]; A 23513 1 true [SHIFT 4840];
   A 23515 1 true [SHIFT 2800]; A 23517 1 true [SHIFT 1181];
   A 23519 1 true [REDUCE aux_sym_exprArgs_repeat1 2 0 3];
   A 23521 1 false [REDUCE aux_sym_exprArgs_repeat1 2 0 3]; A 23523 1 true [SHIFT 1161];
   A 23525 1 true [REDUCE aux_sym_exprArgs_repeat1 2 0 0];
   A 23527 1 false [REDUCE aux_sym_exprArgs_repeat1 2 0 0];
   A 23529 1 true [REDUCE aux_sym_declProp_repeat1 2 0 0];
   A 23531 1 false [REDUCE aux_sym_declProp_repeat1 2 0 0]; A 23533 1 true [SHIFT 939];
   A 23535 1 true [SHIFT 4271]; A 23537 1 true [SHIFT 12246]; A 23539 1 true [SHIFT 940];
   A 23541 1 true [SHIFT 4753]; A 23543 1 true [SHIFT 2772]; A 23545 1 true [SHIFT 1017];
   A 23547 1 true [SHIFT 8815]; A 23549 1 true [SHIFT 4827]; A 23551 1 true [SHIFT 4284];
   A 23553 1 true [SHIFT 4782]; A 23555 1 true [SHIFT 1178]; A 23557 1 true [SHIFT 6990];
   A 23559 1 true [SHIFT 4946]; A 23561 1 true [SHIFT 4305]; A 23563 1 true [SHIFT 7610];
   A 23565 1 true [SHIFT 8887]; A 23567 1 true [REDUCE aux_sym_exprArgs_repeat1 3 0 0];
   A 23569 1 false [REDUCE aux_sym_exprArgs_repeat1 3 0 0];
   A 23571 1 true [REDUCE aux_sym_caseLabel_repeat1 2 0 0];
   A 23573 1 false [REDUCE aux_sym_caseLabel_repeat1 2 0 0]; A 23575 1 true [SHIFT 4294];
   A 23577 1 true [SHIFT 5326]; A 23579 1 true [SHIFT 7553]; A 23581 1 true [SHIFT 4814];
   A 23583 1 true [SHIFT 2783]; A 23585 1 true [SHIFT 901]; A 23587 1 true [SHIFT 4315];
   A 23589 1 true [SHIFT 1195]; A 23591 1 true [SHIFT 1031]; A 23593 1 true [SHIFT 7180];
   A 23595 1 false [REDUCE sym__initializer 1 0 0]; A 23597 1 true [SHIFT 7092];
   A 23599 1 true [SHIFT 1183]; A 23601 1 true [SHIFT 4853]; A 23603 1 true [SHIFT 2795];
   A 23605 1 true [SHIFT 4328]; A 23607 1 true [SHIFT 692]; A 23609 1 true [SHIFT 8217];
   A 23611 1 true [SHIFT 1206]; A 23613 1 true [SHIFT 1412]; A 23615 1 true [SHIFT 4339];
   A 23617 1 true [SHIFT 5045]; A 23619 1 true [SHIFT 4885]; A 23621 1 true [SHIFT 2803];
   A 23623 1 true [SHIFT 2773]; A 23625 1 true [SHIFT 968];
   A 23627 1 true [REDUCE aux_sym_rttiAttributes_repeat1 2 0 0];
   A 23629 1 false [REDUCE aux_sym_rttiAttributes_repeat1 2 0 0]; A 23631 1 true [SHIFT 1107];
   A 23633 1 true [SHIFT 4916]; A 23635 1 true [SHIFT 2812]; A 23637 1 true [SHIFT 1456];
   A 23639 1 true [SHIFT 4557]; A 23641 1 true [SHIFT 4953]; A 23643 1 true [SHIFT 2821];
   A 23645 1 true [SHIFT 1201]; A 23647 1 true [SHIFT 4988]; A 23649 1 true [SHIFT 2825];
   A 23651 1 true [SHIFT 5008]; A 23653 1 true [SHIFT 492]; A 23655 1 true [SHIFT 5023];
   A 23657 1 true [SHIFT 5037]; A 23659 1 true [SHIFT 5051]; A 23661 1 true [SHIFT 5064];
   A 23663 1 true [SHIFT 5080]; A 23665 1 true [SHIFT 1185]; A 23667 1 true [SHIFT 5093];
   A 23669 1 true [SHIFT 5105]; A 23671 1 true [SHIFT 1188]; A 23673 1 true [SHIFT 5115];
   A 23675 1 true [REDUCE sym_kDot 1 0 0]; A 23677 1 false [REDUCE sym_kDot 1 0 0];
   A 23679 1 true [SHIFT 5125]; A 23681 1 true [SHIFT 499]; A 23683 1 true [SHIFT 4469];
   A 23685 1 true [SHIFT 5147]; A 23687 1 true [SHIFT 5121]; A 23689 1 true [SHIFT 5159];
   A 23691 1 true [SHIFT 993]; A 23693 1 true [SHIFT 5169]; A 23695 1 true [SHIFT 5180];
   A 23697 1 true [SHIFT 5189]; A 23699 1 true [SHIFT 4378]; A 23701 1 true [SHIFT 5198];
   A 23703 1 true [SHIFT 1474]; A 23705 1 true [SHIFT 5207]; A 23707 1 true [SHIFT 4335];
   A 23709 1 true [SHIFT 5218]; A 23711 1 true [SHIFT 5227]; A 23713 1 true [SHIFT 554];
   A 23715 1 true [SHIFT 5236]; A 23717 1 true [SHIFT 5239]; A 23719 1 true [SHIFT 5244];
   A 23721 1 true [SHIFT 5249]; A 23723 1 true [SHIFT 5253]; A 23725 1 true [SHIFT 5257];
   A 23727 1 true [SHIFT 5260]; A 23729 1 true [SHIFT 5263]; A 23731 1 true [SHIFT 5266];
   A 23733 1 true [SHIFT 5269]; A 23735 1 true [SHIFT 5272]; A 23737 1 true [SHIFT 5274];
   A 23739 1 true [SHIFT 5277]; A 23741 1 true [SHIFT 5279]; A 23743 1 true [SHIFT 5281];
   A 23745 1 true [SHIFT 5283]; A 23747 1 true [SHIFT 5285]; A 23749 1 true [SHIFT 5287];
   A 23751 1 true [SHIFT 5290]; A 23753 1 true [SHIFT 5292]; A 23755 1 true [SHIFT 5294];
   A 23757 1 true [SHIFT 5298]; A 23759 1 true [SHIFT 5300]; A 23761 1 true [SHIFT 5301];
   A 23763 1 true [SHIFT 5302]; A 23765 1 true [SHIFT 1033]; A 23767 1 true [SHIFT 5310];
   A 23769 1 true [SHIFT 1046]; A 23771 1 true [SHIFT 986]; A 23773 1 true [SHIFT 1021];
   A 23775 1 true [SHIFT 7639]; A 23777 1 true [SHIFT 8732]; A 23779 1 true [SHIFT 5333];
   A 23781 1 true [SHIFT 944]; A 23783 1 true [SHIFT 7730]; A 23785 1 true [SHIFT 1052];
   A 23787 1 true [SHIFT 1026]; A 23789 1 true [SHIFT 5314]; A 23791 1 true [SHIFT 1039];
   A 23793 1 true [SHIFT 4337]; A 23795 1 true [SHIFT 1056]; A 23797 1 true [SHIFT 4509];
   A 23799 1 true [SHIFT 7119]; A 23801 1 true [SHIFT 4790]; A 23803 1 true [SHIFT 4797];
   A 23805 1 true [SHIFT 1061]; A 23807 1 true [SHIFT 893]; A 23809 1 true [SHIFT 2808];
   A 23811 1 true [SHIFT 4729]; A 23813 1 true [SHIFT 480]; A 23815 1 true [SHIFT 5432];
   A 23817 1 true [SHIFT 1135]; A 23819 1 true [SHIFT 10981]; A 23821 1 true [SHIFT 2737];
   A 23823 1 true [SHIFT 2736]; A 23825 1 true [SHIFT 14160]; A 23827 1 true [SHIFT 3398];
   A 23829 1 true [SHIFT 14919]; A 23831 1 true [SHIFT 3456];
   A 23833 2 true [REDUCE aux_sym_literalString_repeat1 2 0 0; SHIFT_REPEAT 10352];
   A 23836 2 true [REDUCE aux_sym_literalString_repeat1 2 0 0; SHIFT_REPEAT 12351];
   A 23839 1 true [SHIFT 10352]; A 23841 1 true [SHIFT 15028]; A 23843 1 true [SHIFT 3433];
   A 23845 1 true [SHIFT 15417]; A 23847 1 true [SHIFT 3473];
   A 23849 1 false [REDUCE sym_typerefPtr 2 0 14];
   A 23851 1 true [REDUCE sym__subRangeBound 1 0 0]; A 23853 1 false [SHIFT 12050];
   A 23855 1 true [SHIFT 11044]; A 23857 1 true [SHIFT 2847];
   A 23859 1 true [REDUCE sym_declString 1 0 0]; A 23861 1 true [SHIFT 4859];
   A 23863 1 false [REDUCE sym__typeref 1 0 3]; A 23865 1 true [SHIFT 2818];
   A 23867 1 false [SHIFT 3826]; A 23869 1 false [REDUCE sym__typeref 1 0 0];
   A 23871 1 true [SHIFT 14405]; A 23873 1 false [REDUCE sym_typerefDot 3 0 25];
   A 23875 1 true [SHIFT 13410]; A 23877 1 true [REDUCE sym_inlineVarStringTyperef 1 0 3];
   A 23879 1 true [SHIFT 4764]; A 23881 1 true [SHIFT 3627];
   A 23883 1 true [REDUCE sym_declArgs 3 0 0]; A 23885 1 true [SHIFT 10432];
   A 23887 1 true [SHIFT 10426]; A 23889 1 true [REDUCE sym_declArgs 4 0 0];
   A 23891 1 true [SHIFT 10457]; A 23893 1 true [SHIFT 11062];
   A 23895 1 false [REDUCE sym__subRangeBound 1 0 0]; A 23897 1 true [SHIFT 2884];
   A 23899 1 false [REDUCE sym_typerefTpl 4 0 60]; A 23901 1 true [REDUCE sym_declArgs 2 0 0];
   A 23903 1 true [SHIFT 1327]; A 23905 2 true [REDUCE sym_blockTr 3 0 0; SHIFT 1307];
   A 23908 2 true [REDUCE sym_blockTr 2 0 0; SHIFT 1379]; A 23911 1 true [SHIFT 10297];
   A 23913 1 false [SHIFT 3852]; A 23915 1 true [SHIFT 10830]; A 23917 1 true [SHIFT 10484];
   A 23919 2 true [REDUCE aux_sym_literalString_repeat1 2 0 0; SHIFT_REPEAT 10484];
   A 23922 2 true [REDUCE aux_sym_literalString_repeat1 2 0 0; SHIFT_REPEAT 12301];
   A 23925 1 true [REDUCE sym__subRangeBound 1 0 28];
   A 23927 1 true [REDUCE sym__subRangeUnary 2 0 14]; A 23929 1 true [SHIFT 11532];
   A 23931 1 true [REDUCE sym__subRangeBinary 3 0 25]; A 23933 1 true [SHIFT 8646];
   A 23935 1 true [REDUCE sym_declSubRange 3 0 0]; A 23937 1 true [SHIFT 8647];
   A 23939 1 true [SHIFT 12394]; A 23941 1 true [REDUCE sym__subRangeCall 4 0 60];
   A 23943 1 true [SHIFT 4595]; A 23945 1 true [SHIFT 3444]; A 23947 1 true [SHIFT 11220];
   A 23949 1 true [REDUCE sym__subRangeBound 1 0 29];
   A 23951 2 true [REDUCE aux_sym_literalString_repeat1 2 0 0; SHIFT_REPEAT 10503];
   A 23954 2 true [REDUCE aux_sym_literalString_repeat1 2 0 0; SHIFT_REPEAT 12155];
   A 23957 1 true [REDUCE sym__subRangeBound 1 0 30]; A 23959 1 true [SHIFT 11001];
   A 23961 1 true [SHIFT 3330]; A 23963 1 true [SHIFT 10503]; A 23965 1 true [SHIFT 13472];
   A 23967 1 true [SHIFT 10867]; A 23969 1 true [SHIFT 2760]; A 23971 1 true [SHIFT 12713];
   A 23973 1 true [SHIFT 2761]; A 23975 1 true [SHIFT 10521];
   A 23977 2 true [REDUCE aux_sym_literalString_repeat1 2 0 0; SHIFT_REPEAT 10521];
   A 23980 2 true [REDUCE aux_sym_literalString_repeat1 2 0 0; SHIFT_REPEAT 12345];
   A 23983 1 true [SHIFT 11306]; A 23985 1 true [SHIFT 11123]; A 23987 1 true [SHIFT 12892];
   A 23989 1 true [SHIFT 10558]; A 23991 1 true [SHIFT 10844]; A 23993 1 true [SHIFT 2763];
   A 23995 1 true [SHIFT 2762]; A 23997 1 true [SHIFT 11047]; A 23999 1 true [SHIFT 3662];
   A 24001 2 true [REDUCE aux_sym__declClass_repeat1 2 0 0; SHIFT_REPEAT 11532];
   A 24004 2 true [REDUCE aux_sym__declClass_repeat1 2 0 0; SHIFT_REPEAT 6354];
   A 24007 2 true [REDUCE aux_sym__declClass_repeat1 2 0 0; SHIFT_REPEAT 11507];
   A 24010 1 true [REDUCE aux_sym__declClass_repeat1 2 0 0]; A 24012 1 true [SHIFT 10820];
   A 24014 1 true [SHIFT 2766]; A 24016 1 true [SHIFT 4819]; A 24018 1 true [SHIFT 3879];
   A 24020 1 true [SHIFT 10739]; A 24022 1 true [SHIFT 2764]; A 24024 1 true [SHIFT 10911];
   A 24026 1 true [SHIFT 3846]; A 24028 1 true [SHIFT 2037]; A 24030 1 true [SHIFT 3259];
   A 24032 1 true [SHIFT 11173]; A 24034 1 true [SHIFT 15484]; A 24036 1 true [SHIFT 15486];
   A 24038 1 true [SHIFT 2765]; A 24040 1 true [SHIFT 4401]; A 24042 1 true [SHIFT 11016];
   A 24044 1 true [SHIFT 4402]; A 24046 1 true [SHIFT 4424]; A 24048 1 true [SHIFT 4430];
   A 24050 1 true [SHIFT 894]; A 24052 1 true [SHIFT 3198]; A 24054 1 true [SHIFT 10784];
   A 24056 1 true [SHIFT 2094]; A 24058 1 true [SHIFT 3219]; A 24060 1 true [SHIFT 11065];
   A 24062 1 true [SHIFT 10853]; A 24064 1 true [SHIFT 2796]; A 24066 1 true [SHIFT 2035];
   A 24068 1 true [SHIFT 3251]; A 24070 1 true [SHIFT 10963]; A 24072 1 true [SHIFT 10792];
   A 24074 1 true [SHIFT 2830]; A 24076 1 true [SHIFT 924]; A 24078 1 true [SHIFT 3349];
   A 24080 1 true [SHIFT 10953]; A 24082 1 true [SHIFT 2146]; A 24084 1 true [SHIFT 3229];
   A 24086 1 true [SHIFT 10894]; A 24088 1 true [SHIFT 10786];
   A 24090 1 true [REDUCE sym_declProcRef 1 0 0]; A 24092 1 true [SHIFT 11021];
   A 24094 1 false [SHIFT 11139]; A 24096 1 true [SHIFT 15527]; A 24098 1 true [SHIFT 2065];
   A 24100 1 true [SHIFT 3263]; A 24102 1 true [SHIFT 10757]; A 24104 1 false [SHIFT 3897];
   A 24106 1 true [SHIFT 2778]; A 24108 1 true [REDUCE sym_declProcRef 3 0 0];
   A 24110 1 true [SHIFT 10781]; A 24112 1 true [SHIFT 15863]; A 24114 1 true [SHIFT 10863];
   A 24116 1 true [SHIFT 2811]; A 24118 1 true [SHIFT 11989]; A 24120 1 true [SHIFT 8322];
   A 24122 1 true [SHIFT 11832]; A 24124 1 true [SHIFT 12435]; A 24126 1 true [SHIFT 2107];
   A 24128 1 true [SHIFT 3235]; A 24130 1 true [SHIFT 11057]; A 24132 1 true [SHIFT 2802];
   A 24134 1 true [SHIFT 926]; A 24136 1 true [SHIFT 3197]; A 24138 1 true [SHIFT 11025];
   A 24140 1 true [SHIFT 12965]; A 24142 1 true [SHIFT 10671]; A 24144 1 true [SHIFT 10664];
   A 24146 1 true [SHIFT 10921]; A 24148 1 true [SHIFT 12125]; A 24150 1 true [SHIFT 11119];
   A 24152 1 true [SHIFT 10836]; A 24154 1 true [SHIFT 2913]; A 24156 1 false [SHIFT 3865];
   A 24158 1 true [SHIFT 12854]; A 24160 1 true [SHIFT 10608]; A 24162 1 true [SHIFT 12298];
   A 24164 1 true [SHIFT 12505]; A 24166 1 true [SHIFT 10770]; A 24168 1 true [SHIFT 2855];
   A 24170 1 true [SHIFT 5330]; A 24172 1 true [SHIFT 11672]; A 24174 1 true [SHIFT 11302];
   A 24176 1 true [SHIFT 4503]; A 24178 1 true [SHIFT 14040]; A 24180 1 true [SHIFT 11620];
   A 24182 1 true [SHIFT 15510]; A 24184 1 true [SHIFT 2852]; A 24186 1 true [SHIFT 11029];
   A 24188 1 true [SHIFT 2891]; A 24190 1 true [SHIFT 4969]; A 24192 1 true [SHIFT 12486];
   A 24194 1 true [SHIFT 10650]; A 24196 1 true [SHIFT 4135]; A 24198 1 true [SHIFT 12768];
   A 24200 1 true [SHIFT 10656]; A 24202 1 true [SHIFT 2917]; A 24204 1 true [SHIFT 10803];
   A 24206 1 true [SHIFT 12673]; A 24208 1 true [SHIFT 10639]; A 24210 1 true [SHIFT 4084];
   A 24212 1 true [SHIFT 12749]; A 24214 1 true [SHIFT 4888]; A 24216 1 true [SHIFT 4744];
   A 24218 1 true [SHIFT 10646]; A 24220 1 true [SHIFT 12370]; A 24222 1 true [SHIFT 10857];
   A 24224 1 true [SHIFT 2885]; A 24226 1 true [SHIFT 12672];
   A 24228 2 true [REDUCE aux_sym_literalString_repeat1 2 0 0; SHIFT_REPEAT 10646];
   A 24231 2 true [REDUCE aux_sym_literalString_repeat1 2 0 0; SHIFT_REPEAT 12370];
   A 24234 1 true [SHIFT 12516]; A 24236 1 true [SHIFT 10598]; A 24238 1 true [SHIFT 12520];
   A 24240 1 true [REDUCE sym_varDef 4 0 86]; A 24242 1 true [REDUCE sym_varAssignDef 4 0 86];
   A 24244 1 true [SHIFT 14416]; A 24246 1 true [SHIFT 2908]; A 24248 1 true [SHIFT 12643];
   A 24250 1 true [SHIFT 10645]; A 24252 1 true [SHIFT 12784]; A 24254 1 true [SHIFT 2024];
   A 24256 1 true [SHIFT 3237]; A 24258 1 true [SHIFT 10733]; A 24260 1 true [SHIFT 10769];
   A 24262 1 true [SHIFT 11243]; A 24264 1 true [SHIFT 11146]; A 24266 1 true [SHIFT 10850];
   A 24268 1 true [SHIFT 2963]; A 24270 1 true [REDUCE sym_declProcRef 2 0 65];
   A 24272 1 true [SHIFT 10758]; A 24274 1 true [SHIFT 15724]; A 24276 1 true [SHIFT 10707];
   A 24278 1 true [SHIFT 11624]; A 24280 1 true [SHIFT 936]; A 24282 1 true [SHIFT 3193];
   A 24284 1 true [SHIFT 10945]; A 24286 1 true [REDUCE sym_declProcRef 4 0 178];
   A 24288 1 true [SHIFT 10799]; A 24290 1 true [SHIFT 15908]; A 24292 1 true [SHIFT 11310];
   A 24294 1 true [SHIFT 10644]; A 24296 1 true [SHIFT 11348]; A 24298 1 true [SHIFT 10714];
   A 24300 1 true [SHIFT 11299]; A 24302 1 true [SHIFT 10698]; A 24304 1 true [SHIFT 11295];
   A 24306 1 true [SHIFT 10746]; A 24308 1 true [SHIFT 8610]; A 24310 1 true [SHIFT 11345];
   A 24312 1 true [SHIFT 10590]; A 24314 1 true [SHIFT 11260]; A 24316 1 true [SHIFT 10654];
   A 24318 1 true [REDUCE aux_sym_ppUsesBlock_repeat1 2 0 0];
   A 24320 2 true [REDUCE aux_sym_ppUsesBlock_repeat1 2 0 0; SHIFT_REPEAT 10671];
   A 24323 2 true [REDUCE aux_sym_ppUsesBlock_repeat1 2 0 0; SHIFT_REPEAT 10664];
   A 24326 2 true [REDUCE aux_sym_ppUsesBlock_repeat1 2 0 0; SHIFT_REPEAT 11119];
   A 24329 1 true [SHIFT 914]; A 24331 1 true [SHIFT 3179]; A 24333 1 true [SHIFT 10932];
   A 24335 2 true [REDUCE aux_sym_rttiAttributes_repeat2 2 0 0; SHIFT_REPEAT 3966];
   A 24338 1 true [SHIFT 11281]; A 24340 1 true [SHIFT 10600]; A 24342 1 true [SHIFT 11301];
   A 24344 1 true [SHIFT 10729]; A 24346 1 true [SHIFT 11284]; A 24348 1 true [SHIFT 10718];
   A 24350 1 true [SHIFT 11255]; A 24352 1 true [SHIFT 10749]; A 24354 1 true [SHIFT 2090];
   A 24356 1 true [SHIFT 3230]; A 24358 1 true [SHIFT 10942]; A 24360 1 true [SHIFT 10827];
   A 24362 1 true [SHIFT 11334]; A 24364 1 true [SHIFT 10527]; A 24366 1 true [SHIFT 11257];
   A 24368 1 true [SHIFT 10543]; A 24370 1 true [SHIFT 11249]; A 24372 1 true [SHIFT 10618];
   A 24374 1 true [SHIFT 11253]; A 24376 1 true [SHIFT 10719]; A 24378 1 true [SHIFT 2053];
   A 24380 1 true [SHIFT 3262]; A 24382 1 true [SHIFT 10848]; A 24384 1 true [SHIFT 10762];
   A 24386 1 true [SHIFT 2991]; A 24388 1 true [SHIFT 11359]; A 24390 1 true [SHIFT 10699];
   A 24392 1 true [SHIFT 11355]; A 24394 1 true [SHIFT 11050]; A 24396 1 true [SHIFT 897];
   A 24398 1 true [SHIFT 3220]; A 24400 1 true [SHIFT 10985]; A 24402 1 true [SHIFT 8612];
   A 24404 1 true [SHIFT 2977]; A 24406 1 true [SHIFT 11008]; A 24408 1 true [SHIFT 3038];
   A 24410 1 true [SHIFT 3057]; A 24412 1 true [SHIFT 11669]; A 24414 1 true [SHIFT 2087];
   A 24416 1 true [SHIFT 3234]; A 24418 1 true [SHIFT 11013]; A 24420 1 true [SHIFT 2077];
   A 24422 1 true [SHIFT 3264]; A 24424 1 true [SHIFT 10967]; A 24426 1 true [SHIFT 2039];
   A 24428 1 true [SHIFT 3260]; A 24430 1 true [SHIFT 11023]; A 24432 1 true [SHIFT 11296];
   A 24434 1 true [SHIFT 10588]; A 24436 1 true [SHIFT 11274]; A 24438 1 true [SHIFT 10622];
   A 24440 1 true [SHIFT 2959];
   A 24442 2 true [REDUCE aux_sym_declClass_repeat1 2 0 0; SHIFT_REPEAT 11306];
   A 24445 2 true [REDUCE aux_sym_declClass_repeat1 2 0 0; SHIFT_REPEAT 11672];
   A 24448 2 true [REDUCE aux_sym_declClass_repeat1 2 0 0; SHIFT_REPEAT 11302];
   A 24451 2 true [REDUCE aux_sym_declClass_repeat1 2 0 0; SHIFT_REPEAT 10558];
   A 24454 1 true [SHIFT 10723]; A 24456 1 true [SHIFT 11303]; A 24458 1 true [SHIFT 10517];
   A 24460 1 true [SHIFT 11261]; A 24462 1 true [SHIFT 10541]; A 24464 1 true [SHIFT 11929];
   A 24466 1 true [SHIFT 12091]; A 24468 1 true [SHIFT 2134]; A 24470 1 true [SHIFT 10997];
   A 24472 1 true [SHIFT 11247]; A 24474 1 true [SHIFT 10276]; A 24476 1 true [SHIFT 11353];
   A 24478 1 true [SHIFT 10356]; A 24480 1 true [REDUCE sym_declFile 1 0 0];
   A 24482 1 true [SHIFT 3269]; A 24484 1 true [SHIFT 11347]; A 24486 1 true [SHIFT 11315];
   A 24488 1 true [SHIFT 11342]; A 24490 1 true [SHIFT 11489]; A 24492 1 true [SHIFT 10771];
   A 24494 1 true [SHIFT 10637]; A 24496 1 true [SHIFT 11521]; A 24498 1 true [SHIFT 2078];
   A 24500 1 true [SHIFT 11265]; A 24502 1 true [SHIFT 10559]; A 24504 1 true [SHIFT 11273];
   A 24506 1 true [SHIFT 10567]; A 24508 1 true [SHIFT 10764]; A 24510 1 true [SHIFT 3083];
   A 24512 1 true [REDUCE sym_declProcRef 6 0 265]; A 24514 1 true [SHIFT 15949];
   A 24516 1 true [SHIFT 3081]; A 24518 1 true [SHIFT 10448]; A 24520 1 true [SHIFT 11017];
   A 24522 1 true [SHIFT 10725]; A 24524 1 true [SHIFT 11269]; A 24526 1 true [SHIFT 11372];
   A 24528 1 true [SHIFT 10710]; A 24530 1 true [SHIFT 13475]; A 24532 1 true [SHIFT 133];
   A 24534 1 true [SHIFT 6201]; A 24536 1 true [SHIFT 134]; A 24538 1 true [SHIFT 6585];
   A 24540 1 true [SHIFT 11326]; A 24542 1 true [SHIFT 11096]; A 24544 1 true [SHIFT 11746];
   A 24546 1 true [SHIFT 11314]; A 24548 1 true [SHIFT 11346]; A 24550 1 true [SHIFT 8418];
   A 24552 1 true [SHIFT 8153]; A 24554 1 true [SHIFT 12099]; A 24556 1 true [SHIFT 15817];
   A 24558 1 true [SHIFT 1511]; A 24560 1 true [SHIFT 2050]; A 24562 1 true [SHIFT 915];
   A 24564 1 true [SHIFT 10480]; A 24566 1 true [SHIFT 10833]; A 24568 1 true [SHIFT 10624];
   A 24570 1 true [SHIFT 10751]; A 24572 1 true [SHIFT 3127]; A 24574 1 true [SHIFT 11321];
   A 24576 1 true [SHIFT 10794]; A 24578 1 true [SHIFT 11275]; A 24580 1 true [SHIFT 11228];
   A 24582 1 true [SHIFT 11996]; A 24584 1 true [SHIFT 11628]; A 24586 1 true [SHIFT 12122];
   A 24588 1 true [SHIFT 10839]; A 24590 1 true [SHIFT 10655]; A 24592 1 true [SHIFT 1995];
   A 24594 1 true [REDUCE aux_sym_unit_repeat1 2 0 0]
  ].

Definition ts_parse_actions_24596 : list (Z * list TSParseActionEntry) :=
  [
   A 24596 2 true [REDUCE aux_sym_unit_repeat1 2 0 0; SHIFT_REPEAT 133];
   A 24599 2 true [REDUCE aux_sym_unit_repeat1 2 0 0; SHIFT_REPEAT 6201];
   A 24602 2 true [REDUCE aux_sym_unit_repeat1 2 0 0; SHIFT_REPEAT 134];
   A 24605 2 true [REDUCE aux_sym_unit_repeat1 2 0 0; SHIFT_REPEAT 6585];
   A 24608 1 true [SHIFT 1997]; A 24610 1 true [SHIFT 10837]; A 24612 1 true [SHIFT 887];
   A 24614 1 true [SHIFT 11311]; A 24616 1 true [SHIFT 11432]; A 24618 1 true [SHIFT 11240];
   A 24620 1 true [SHIFT 11610]; A 24622 1 true [SHIFT 11354]; A 24624 1 true [SHIFT 8290];
   A 24626 1 true [SHIFT 11287]; A 24628 1 true [SHIFT 8666];
   A 24630 1 true [REDUCE aux_sym_ppUsesBlock_repeat2 2 0 17]; A 24632 1 true [SHIFT 10425];
   A 24634 1 true [SHIFT 2009]; A 24636 1 true [SHIFT 10285]; A 24638 1 true [SHIFT 1325];
   A 24640 1 true [SHIFT 2148]; A 24642 1 true [SHIFT 958];
   A 24644 1 true [REDUCE sym_declPropArgs 2 0 0];
   A 24646 1 true [REDUCE sym_declProcRef 4 0 179]; A 24648 1 true [SHIFT 15918];
   A 24650 1 true [REDUCE sym_declString 4 0 0]; A 24652 1 true [SHIFT 2838];
   A 24654 1 true [SHIFT 959]; A 24656 1 true [SHIFT 10946]; A 24658 1 true [SHIFT 8402];
   A 24660 1 true [SHIFT 7904]; A 24662 1 true [SHIFT 12075]; A 24664 1 true [SHIFT 1534];
   A 24666 1 true [SHIFT 11335]; A 24668 1 true [SHIFT 11987]; A 24670 1 true [SHIFT 11294];
   A 24672 1 true [SHIFT 12290]; A 24674 1 true [SHIFT 2121]; A 24676 1 true [SHIFT 13903];
   A 24678 1 true [REDUCE sym_declPropArgs 4 0 0]; A 24680 1 true [SHIFT 2088];
   A 24682 1 true [SHIFT 927]; A 24684 1 true [SHIFT 10862]; A 24686 1 true [SHIFT 10840];
   A 24688 1 true [SHIFT 10649]; A 24690 1 true [SHIFT 10943]; A 24692 1 true [SHIFT 12166];
   A 24694 1 true [SHIFT 2071]; A 24696 1 true [SHIFT 2066]; A 24698 1 true [SHIFT 10935];
   A 24700 1 true [SHIFT 916]; A 24702 1 true [SHIFT 2122]; A 24704 1 true [SHIFT 10783];
   A 24706 1 true [SHIFT 10828]; A 24708 1 true [REDUCE aux_sym_ppUsesBlock_repeat2 1 0 17];
   A 24710 1 true [SHIFT 10789]; A 24712 1 true [SHIFT 10602]; A 24714 1 true [SHIFT 11992];
   A 24716 1 true [SHIFT 929]; A 24718 1 true [SHIFT 957]; A 24720 1 true [SHIFT 10956];
   A 24722 1 true [SHIFT 2089]; A 24724 1 true [SHIFT 2091]; A 24726 1 true [SHIFT 11031];
   A 24728 1 true [SHIFT 932]; A 24730 1 true [SHIFT 2092]; A 24732 1 true [SHIFT 10993];
   A 24734 1 true [SHIFT 2102]; A 24736 1 true [SHIFT 12027]; A 24738 1 true [SHIFT 2105];
   A 24740 2 true [REDUCE aux_sym_literalString_repeat1 2 0 0; SHIFT_REPEAT 10943];
   A 24743 2 true [REDUCE aux_sym_literalString_repeat1 2 0 0; SHIFT_REPEAT 12166];
   A 24746 1 true [SHIFT 955]; A 24748 1 true [SHIFT 878]; A 24750 1 true [SHIFT 2103];
   A 24752 1 true [SHIFT 10994]; A 24754 1 true [SHIFT 937]; A 24756 1 true [SHIFT 881];
   A 24758 1 true [SHIFT 2041]; A 24760 1 true [SHIFT 882]; A 24762 1 true [SHIFT 10819];
   A 24764 1 true [SHIFT 2113]; A 24766 1 true [SHIFT 3139]; A 24768 1 true [SHIFT 2073];
   A 24770 1 true [SHIFT 10940]; A 24772 1 true [SHIFT 11264]; A 24774 1 true [SHIFT 11617];
   A 24776 1 true [SHIFT 11810]; A 24778 1 true [SHIFT 12015];
   A 24780 1 true [REDUCE sym_declPropArgs 3 0 0]; A 24782 1 true [SHIFT 920];
   A 24784 1 true [SHIFT 2128]; A 24786 1 true [SHIFT 2131]; A 24788 1 true [SHIFT 10813];
   A 24790 1 true [SHIFT 2125]; A 24792 1 true [SHIFT 2139];
   A 24794 1 true [REDUCE aux_sym_declProp_repeat2 2 0 106];
   A 24796 2 true [REDUCE aux_sym_declProp_repeat2 2 0 106; SHIFT_REPEAT 15484];
   A 24799 2 true [REDUCE aux_sym_declProp_repeat2 2 0 106; SHIFT_REPEAT 15486];
   A 24802 2 true [REDUCE aux_sym_declProp_repeat2 2 0 106; SHIFT_REPEAT 2765];
   A 24805 2 true [REDUCE aux_sym_declProp_repeat2 2 0 106; SHIFT_REPEAT 4401];
   A 24808 2 true [REDUCE aux_sym_declProp_repeat2 2 0 106; SHIFT_REPEAT 10997];
   A 24811 2 true [REDUCE aux_sym_declProp_repeat2 2 0 106; SHIFT_REPEAT 4402];
   A 24814 2 true [REDUCE aux_sym_declProp_repeat2 2 0 106; SHIFT_REPEAT 4424];
   A 24817 2 true [REDUCE aux_sym_declProp_repeat2 2 0 106; SHIFT_REPEAT 4430];
   A 24820 1 true [SHIFT 8324]; A 24822 1 true [SHIFT 739]; A 24824 1 true [SHIFT 12152];
   A 24826 1 true [SHIFT 627];
   A 24828 2 true [REDUCE aux_sym_rttiAttributes_repeat2 2 0 0; SHIFT_REPEAT 3814];
   A 24831 1 true [SHIFT 11012]; A 24833 1 true [SHIFT 10632]; A 24835 1 true [SHIFT 8628];
   A 24837 1 true [SHIFT 8626]; A 24839 1 true [SHIFT 2014]; A 24841 1 true [SHIFT 10883];
   A 24843 1 true [SHIFT 10325]; A 24845 1 true [SHIFT 2017]; A 24847 1 true [SHIFT 2140];
   A 24849 1 true [SHIFT 11054]; A 24851 1 true [SHIFT 2056];
   A 24853 1 true [REDUCE aux_sym_declUses_repeat1 2 0 0];
   A 24855 2 true [REDUCE aux_sym_declUses_repeat1 2 0 0; SHIFT_REPEAT 11017];
   A 24858 2 true [REDUCE aux_sym_declUses_repeat1 2 0 0; SHIFT_REPEAT 10725];
   A 24861 2 true [REDUCE aux_sym_declUses_repeat1 2 0 0; SHIFT_REPEAT 11521];
   A 24864 1 true [SHIFT 11331]; A 24866 1 true [SHIFT 10591]; A 24868 1 true [SHIFT 10657];
   A 24870 1 true [SHIFT 2057]; A 24872 1 true [SHIFT 10904]; A 24874 1 true [SHIFT 2059];
   A 24876 1 true [SHIFT 898]; A 24878 1 true [SHIFT 2020]; A 24880 1 true [SHIFT 2021];
   A 24882 1 true [SHIFT 10986]; A 24884 1 true [SHIFT 963]; A 24886 1 true [SHIFT 10937];
   A 24888 1 true [SHIFT 933]; A 24890 1 true [SHIFT 10915]; A 24892 1 true [SHIFT 1979];
   A 24894 1 true [REDUCE sym_declProcRef 5 0 228]; A 24896 1 true [SHIFT 15939];
   A 24898 1 true [SHIFT 2025]; A 24900 1 true [REDUCE sym_declProcRef 3 0 122];
   A 24902 1 true [SHIFT 15872]; A 24904 1 true [SHIFT 2026];
   A 24906 1 true [REDUCE sym_declMetaClass 3 0 0]; A 24908 1 true [SHIFT 795];
   A 24910 1 true [SHIFT 10756]; A 24912 1 false [SHIFT 11158]; A 24914 1 true [SHIFT 11833];
   A 24916 1 true [SHIFT 3562]; A 24918 1 true [REDUCE sym__anonymousRecord 2 0 0];
   A 24920 1 true [SHIFT 11879]; A 24922 1 true [SHIFT 11796];
   A 24924 1 true [REDUCE sym_declEnum 3 0 0];
   A 24926 2 true [REDUCE aux_sym_exprTpl_repeat1 2 0 0; SHIFT_REPEAT 11309];
   A 24929 2 true [REDUCE aux_sym_exprTpl_repeat1 2 0 0; SHIFT_REPEAT 12275];
   A 24932 2 true [REDUCE aux_sym_exprTpl_repeat1 2 0 0; SHIFT_REPEAT 12091];
   A 24935 1 true [SHIFT 12388]; A 24937 1 true [SHIFT 13780]; A 24939 1 true [SHIFT 13329];
   A 24941 1 true [SHIFT 11694]; A 24943 1 true [SHIFT 11843]; A 24945 1 true [SHIFT 11803];
   A 24947 1 true [SHIFT 12034]; A 24949 1 true [SHIFT 11790]; A 24951 1 true [SHIFT 12289];
   A 24953 1 true [SHIFT 12319]; A 24955 1 true [SHIFT 12385]; A 24957 1 true [SHIFT 11809];
   A 24959 1 true [SHIFT 11818]; A 24961 1 true [SHIFT 2985]; A 24963 1 true [SHIFT 10959];
   A 24965 1 true [SHIFT 11816]; A 24967 1 true [REDUCE sym_declProcRef 7 0 228];
   A 24969 1 true [SHIFT 11827]; A 24971 1 true [SHIFT 11731]; A 24973 1 true [SHIFT 246];
   A 24975 1 true [SHIFT 10976]; A 24977 1 true [REDUCE sym_type 1 0 0];
   A 24979 1 true [SHIFT 11889]; A 24981 1 true [SHIFT 8228]; A 24983 1 true [SHIFT 9413];
   A 24985 1 true [SHIFT 12361]; A 24987 1 true [SHIFT 2012];
   A 24989 1 true [REDUCE sym_declArray 7 0 0]; A 24991 1 true [SHIFT 10732];
   A 24993 1 true [SHIFT 3199]; A 24995 1 true [SHIFT 11685];
   A 24997 2 true [REDUCE aux_sym_ppUsesBlock_repeat1 2 0 0; SHIFT_REPEAT 11098];
   A 25000 2 true [REDUCE aux_sym_ppUsesBlock_repeat1 2 0 0; SHIFT_REPEAT 10725];
   A 25003 2 true [REDUCE aux_sym_ppUsesBlock_repeat1 2 0 0; SHIFT_REPEAT 11521];
   A 25006 1 true [SHIFT 232]; A 25008 1 true [SHIFT 10962]; A 25010 1 true [SHIFT 1488];
   A 25012 1 true [SHIFT 10908]; A 25014 1 true [SHIFT 13681]; A 25016 1 true [SHIFT 11098];
   A 25018 1 true [REDUCE aux_sym_declProp_repeat2 2 0 98];
   A 25020 1 true [REDUCE aux_sym_declProp_repeat2 2 0 99];
   A 25022 2 true [REDUCE aux_sym_labeledStatement_repeat1 2 0 0; SHIFT_REPEAT 14205];
   A 25025 1 true [SHIFT 11979]; A 25027 1 true [SHIFT 11969]; A 25029 1 true [SHIFT 12294];
   A 25031 1 true [SHIFT 10390]; A 25033 1 true [SHIFT 13002]; A 25035 1 true [SHIFT 11102];
   A 25037 1 true [SHIFT 14205]; A 25039 1 true [SHIFT 1717]; A 25041 1 true [SHIFT 10950];
   A 25043 1 true [SHIFT 2142]; A 25045 1 true [SHIFT 10831];
   A 25047 1 true [REDUCE sym_type 4 0 0]; A 25049 1 true [REDUCE sym_moduleName 1 0 0];
   A 25051 1 true [SHIFT 11695]; A 25053 1 true [SHIFT 3000]; A 25055 1 true [SHIFT 10990];
   A 25057 1 true [SHIFT 12010]; A 25059 1 true [SHIFT 1480]; A 25061 1 true [SHIFT 10880];
   A 25063 1 true [REDUCE sym_declProcRef 8 0 265]; A 25065 1 true [SHIFT 11704];
   A 25067 1 true [SHIFT 809]; A 25069 1 true [SHIFT 10759]; A 25071 1 true [SHIFT 11917];
   A 25073 1 true [REDUCE sym_declProcRef 6 0 178]; A 25075 1 true [SHIFT 11978];
   A 25077 1 true [SHIFT 11762]; A 25079 1 true [REDUCE sym_declArray 8 0 0];
   A 25081 1 true [SHIFT 11709]; A 25083 1 true [SHIFT 12000]; A 25085 1 true [SHIFT 8637];
   A 25087 1 true [SHIFT 8635]; A 25089 1 true [SHIFT 1996]; A 25091 1 true [SHIFT 10896];
   A 25093 1 true [SHIFT 10703]; A 25095 1 true [REDUCE sym_declProcRef 4 0 65];
   A 25097 1 true [SHIFT 796]; A 25099 1 true [SHIFT 10983]; A 25101 1 true [SHIFT 2441];
   A 25103 1 true [SHIFT 11030]; A 25105 1 true [SHIFT 11714]; A 25107 1 true [SHIFT 2442];
   A 25109 1 true [SHIFT 11034]; A 25111 1 true [SHIFT 11719]; A 25113 1 true [SHIFT 11846];
   A 25115 1 true [SHIFT 11954]; A 25117 1 true [REDUCE sym_type 3 0 0];
   A 25119 1 true [REDUCE sym_declArray 4 0 0]; A 25121 1 true [REDUCE sym__declClass 3 0 0];
   A 25123 1 true [SHIFT 12043]; A 25125 1 true [SHIFT 11724]; A 25127 1 true [SHIFT 12843];
   A 25129 1 true [SHIFT 11950]; A 25131 1 true [REDUCE sym_declArray 6 0 0];
   A 25133 1 true [SHIFT 11592]; A 25135 1 true [REDUCE sym_declProcRef 6 0 179];
   A 25137 2 true [REDUCE aux_sym_rttiAttributes_repeat2 2 0 0; SHIFT_REPEAT 3900];
   A 25140 1 true [SHIFT 11730]; A 25142 1 true [REDUCE sym_declEnum 4 0 0];
   A 25144 1 true [SHIFT 11903]; A 25146 1 true [SHIFT 11706];
   A 25148 2 true [REDUCE aux_sym_typerefArgs_repeat1 2 0 0; SHIFT_REPEAT 11309];
   A 25151 2 true [REDUCE aux_sym_typerefArgs_repeat1 2 0 0; SHIFT_REPEAT 12117];
   A 25154 2 true [REDUCE aux_sym_typerefArgs_repeat1 2 0 0; SHIFT_REPEAT 12091];
   A 25157 1 true [REDUCE sym__declClass 5 0 0]; A 25159 1 true [SHIFT 11700];
   A 25161 1 true [SHIFT 11735]; A 25163 1 true [SHIFT 10864]; A 25165 1 true [SHIFT 11793];
   A 25167 1 true [SHIFT 3206]; A 25169 1 true [SHIFT 11984]; A 25171 1 true [SHIFT 1892];
   A 25173 1 true [SHIFT 10774]; A 25175 1 true [SHIFT 3342]; A 25177 1 true [SHIFT 11740];
   A 25179 1 true [SHIFT 9609]; A 25181 1 true [SHIFT 1983]; A 25183 1 true [SHIFT 3421];
   A 25185 1 true [SHIFT 13011]; A 25187 1 true [SHIFT 4036]; A 25189 1 true [SHIFT 3465];
   A 25191 1 true [SHIFT 11973]; A 25193 1 true [SHIFT 1718]; A 25195 1 true [SHIFT 10958];
   A 25197 1 true [SHIFT 11744]; A 25199 1 true [SHIFT 11689]; A 25201 1 true [SHIFT 11749];
   A 25203 1 true [SHIFT 1893]; A 25205 1 true [SHIFT 10796]; A 25207 1 true [SHIFT 12450];
   A 25209 1 true [SHIFT 11861]; A 25211 1 true [SHIFT 1722]; A 25213 1 true [SHIFT 10972];
   A 25215 1 true [SHIFT 11752]; A 25217 1 true [SHIFT 12005]; A 25219 1 true [SHIFT 12287];
   A 25221 1 true [SHIFT 12282]; A 25223 1 true [SHIFT 11759]; A 25225 1 true [SHIFT 11864];
   A 25227 1 true [SHIFT 2450]; A 25229 1 true [SHIFT 11052]; A 25231 1 true [SHIFT 11701];
   A 25233 1 true [SHIFT 1478]; A 25235 1 true [SHIFT 10858]; A 25237 1 true [SHIFT 11765];
   A 25239 1 true [REDUCE sym_arrayOfConstTyperef 1 0 3];
   A 25241 1 true [REDUCE sym_declArray 3 0 0]; A 25243 1 true [SHIFT 2013];
   A 25245 1 true [SHIFT 10787]; A 25247 1 true [REDUCE sym_arrayOfConstType 1 0 0];
   A 25249 1 true [REDUCE sym_declSet 3 0 0]; A 25251 1 true [SHIFT 11771];
   A 25253 1 true [REDUCE sym_declProcRef 5 0 0]; A 25255 1 true [SHIFT 3025];
   A 25257 1 true [SHIFT 11033]; A 25259 1 true [REDUCE sym_declFile 3 0 0];
   A 25261 1 true [SHIFT 11768]; A 25263 1 true [SHIFT 11777];
   A 25265 1 true [REDUCE sym_declArray 5 0 0]; A 25267 1 true [REDUCE sym_declProcRef 5 0 122];
   A 25269 1 true [REDUCE sym__declClass 4 0 0]; A 25271 1 true [SHIFT 12014];
   A 25273 1 true [SHIFT 11961]; A 25275 1 true [REDUCE sym__anonymousRecord 3 0 0];
   A 25277 1 true [SHIFT 9496]; A 25279 1 true [SHIFT 2075]; A 25281 1 true [SHIFT 225];
   A 25283 1 true [SHIFT 10955]; A 25285 1 true [SHIFT 11784]; A 25287 1 true [SHIFT 1897];
   A 25289 1 true [SHIFT 10824]; A 25291 1 true [REDUCE sym__declClass 2 0 0];
   A 25293 1 true [REDUCE sym_moduleName 2 0 0]; A 25295 1 true [SHIFT 7928];
   A 25297 1 true [SHIFT 1482]; A 25299 1 true [SHIFT 10487]; A 25301 1 true [SHIFT 10520];
   A 25303 1 true [SHIFT 10370]; A 25305 1 true [SHIFT 10435]; A 25307 1 true [SHIFT 12694];
   A 25309 1 true [SHIFT 13123]; A 25311 1 true [SHIFT 13121]; A 25313 1 true [SHIFT 10941];
   A 25315 1 true [SHIFT 10996]; A 25317 1 false [SHIFT 11161]; A 25319 1 true [SHIFT 14277];
   A 25321 1 true [SHIFT 10501]; A 25323 1 true [SHIFT 11435];
   A 25325 1 true [REDUCE sym_genericDot 3 0 25];
   A 25327 1 false [REDUCE sym_genericDot 3 0 25]; A 25329 1 true [SHIFT 11804];
   A 25331 1 true [SHIFT 11179]; A 25333 1 true [SHIFT 10760]; A 25335 1 true [SHIFT 8611];
   A 25337 1 true [SHIFT 8880]; A 25339 1 true [SHIFT 8872]; A 25341 1 true [SHIFT 10287];
   A 25343 1 true [SHIFT 10724]; A 25345 1 true [SHIFT 11003]; A 25347 1 true [SHIFT 10628];
   A 25349 1 true [SHIFT 10673]; A 25351 1 true [SHIFT 11341];
   A 25353 1 true [REDUCE sym__operatorName 1 0 0];
   A 25355 1 false [REDUCE sym__operatorName 1 0 0]; A 25357 1 true [SHIFT 10349];
   A 25359 1 true [SHIFT 11585]; A 25361 1 true [SHIFT 10610]; A 25363 1 true [SHIFT 10553];
   A 25365 1 true [SHIFT 10693]; A 25367 1 true [SHIFT 11046]; A 25369 1 true [SHIFT 10533];
   A 25371 1 true [SHIFT 10554]; A 25373 1 true [SHIFT 10720]; A 25375 1 true [SHIFT 10595];
   A 25377 1 true [SHIFT 10604]; A 25379 1 true [SHIFT 10515]; A 25381 1 true [SHIFT 10540];
   A 25383 1 true [SHIFT 10550]; A 25385 1 true [SHIFT 10580]; A 25387 1 true [SHIFT 10741];
   A 25389 1 true [SHIFT 11627]; A 25391 1 true [SHIFT 10561];
   A 25393 2 true [REDUCE aux_sym_declPropArgs_repeat1 2 0 0; SHIFT_REPEAT 13780];
   A 25396 2 true [REDUCE aux_sym_declPropArgs_repeat1 2 0 0; SHIFT_REPEAT 13329];
   A 25399 2 true [REDUCE aux_sym_declPropArgs_repeat1 2 0 0; SHIFT_REPEAT 11694];
   A 25402 1 true [SHIFT 10727]; A 25404 1 true [SHIFT 11667]; A 25406 1 true [SHIFT 10635];
   A 25408 1 true [SHIFT 10557]; A 25410 1 true [SHIFT 8636]; A 25412 1 true [SHIFT 10544];
   A 25414 1 true [SHIFT 10568]; A 25416 1 true [SHIFT 10609]; A 25418 1 true [SHIFT 10969];
   A 25420 1 true [SHIFT 10823]; A 25422 1 true [SHIFT 14918]; A 25424 1 true [SHIFT 10625];
   A 25426 1 true [SHIFT 10717]; A 25428 1 true [SHIFT 10629]; A 25430 1 true [SHIFT 10695];
   A 25432 1 true [SHIFT 10626]; A 25434 1 true [SHIFT 11152]; A 25436 1 true [SHIFT 10556];
   A 25438 1 true [SHIFT 10686]; A 25440 1 true [SHIFT 11375]; A 25442 1 true [SHIFT 10575];
   A 25444 1 true [SHIFT 8294]; A 25446 1 true [SHIFT 10388]; A 25448 1 true [SHIFT 10329];
   A 25450 1 true [SHIFT 11817]; A 25452 1 true [SHIFT 10362]; A 25454 1 true [SHIFT 10385];
   A 25456 1 true [SHIFT 10619]; A 25458 1 true [SHIFT 10606]; A 25460 1 true [SHIFT 12006];
   A 25462 1 true [SHIFT 10662]; A 25464 1 true [SHIFT 10594]; A 25466 1 true [SHIFT 8627];
   A 25468 1 true [SHIFT 10661]; A 25470 1 true [SHIFT 10634]; A 25472 1 true [SHIFT 11683];
   A 25474 1 true [SHIFT 10509]; A 25476 1 true [SHIFT 10586]; A 25478 1 true [SHIFT 12497];
   A 25480 1 true [SHIFT 13699]; A 25482 1 true [SHIFT 10530];
   A 25484 2 true [REDUCE sym_type 1 0 0; REDUCE sym_varDef 4 0 86];
   A 25487 1 true [SHIFT 10463]; A 25489 1 true [SHIFT 11736]; A 25491 1 true [SHIFT 10612];
   A 25493 1 true [SHIFT 10721]; A 25495 1 true [SHIFT 11542]; A 25497 1 true [SHIFT 10434];
   A 25499 1 true [SHIFT 8876]; A 25501 1 true [SHIFT 11175]; A 25503 1 true [SHIFT 10778];
   A 25505 1 true [SHIFT 3420]; A 25507 1 true [SHIFT 10492]; A 25509 1 true [SHIFT 10536];
   A 25511 1 true [SHIFT 10548]; A 25513 1 true [SHIFT 11067]; A 25515 1 true [SHIFT 10603];
   A 25517 1 true [SHIFT 10524]; A 25519 1 true [SHIFT 10357]; A 25521 1 true [SHIFT 11197];
   A 25523 1 true [SHIFT 10631]; A 25525 1 true [SHIFT 10685]; A 25527 1 true [SHIFT 10755];
   A 25529 1 true [SHIFT 8276]; A 25531 1 true [SHIFT 10563]; A 25533 1 true [SHIFT 10572];
   A 25535 1 true [SHIFT 10522]; A 25537 1 true [SHIFT 11711]; A 25539 1 true [SHIFT 10611];
   A 25541 1 true [SHIFT 11458]; A 25543 1 true [SHIFT 11357]; A 25545 1 true [SHIFT 11910];
   A 25547 1 true [SHIFT 10569]; A 25549 1 true [SHIFT 10583]; A 25551 1 true [SHIFT 11298];
   A 25553 1 true [SHIFT 10653]; A 25555 1 true [SHIFT 10526]; A 25557 1 true [SHIFT 10566];
   A 25559 1 true [SHIFT 10546]; A 25561 1 true [SHIFT 10291]; A 25563 1 true [SHIFT 8182];
   A 25565 1 true [SHIFT 10700]; A 25567 1 true [SHIFT 3402];
   A 25569 1 true [REDUCE sym_declExport 1 0 0]; A 25571 1 true [SHIFT 11859];
   A 25573 1 true [SHIFT 5434]; A 25575 1 true [SHIFT 10709]; A 25577 1 true [SHIFT 10523];
   A 25579 1 true [SHIFT 10581]; A 25581 1 true [SHIFT 11663]; A 25583 1 true [SHIFT 7777];
   A 25585 1 true [SHIFT 12308]; A 25587 1 true [SHIFT 9321]; A 25589 1 true [SHIFT 5620];
   A 25591 1 true [REDUCE sym_tryTr 3 0 41]; A 25593 1 true [SHIFT 844];
   A 25595 1 true [SHIFT 3214]; A 25597 1 false [SHIFT 11076]; A 25599 1 true [SHIFT 12183];
   A 25601 1 true [SHIFT 13525]; A 25603 1 true [SHIFT 8185]; A 25605 1 true [SHIFT 10643];
   A 25607 1 true [SHIFT 5623]; A 25609 1 true [REDUCE sym_tryTr 3 0 42];
   A 25611 1 true [SHIFT 12503]; A 25613 1 true [SHIFT 9048]; A 25615 1 true [SHIFT 3628];
   A 25617 1 false [SHIFT 3161]; A 25619 1 true [SHIFT 5665];
   A 25621 1 true [REDUCE sym_varAssignDef 2 0 0]; A 25623 1 true [SHIFT 13256];
   A 25625 1 true [SHIFT 8259]; A 25627 1 true [SHIFT 12926]; A 25629 1 true [SHIFT 8768];
   A 25631 1 true [SHIFT 11480]; A 25633 1 true [SHIFT 9154]; A 25635 1 true [SHIFT 13553];
   A 25637 1 true [SHIFT 8383]; A 25639 1 true [SHIFT 14954]; A 25641 1 true [SHIFT 12647];
   A 25643 1 true [SHIFT 8425]; A 25645 1 true [REDUCE sym_defaultValue 2 0 0];
   A 25647 1 true [REDUCE sym_constDef 3 0 33]; A 25649 1 true [SHIFT 13180];
   A 25651 1 true [SHIFT 9254]; A 25653 1 true [SHIFT 12185]; A 25655 1 true [SHIFT 9294];
   A 25657 1 true [REDUCE sym_arrInitializer 3 0 0];
   A 25659 1 true [REDUCE sym_recInitializer 3 0 0];
   A 25661 1 true [REDUCE sym_constDef 5 0 132]; A 25663 1 true [SHIFT 13510];
   A 25665 1 true [SHIFT 135]; A 25667 1 true [REDUCE aux_sym_unit_repeat1 1 0 0];
   A 25669 1 true [SHIFT 7906]; A 25671 1 true [SHIFT 13104];
   A 25673 1 true [REDUCE sym_recInitializer 4 0 0];
   A 25675 1 true [REDUCE sym_arrInitializer 4 0 0]; A 25677 1 true [SHIFT 13666];
   A 25679 1 true [SHIFT 7554]; A 25681 1 true [SHIFT 13935]; A 25683 1 true [SHIFT 9367];
   A 25685 1 true [SHIFT 5629]; A 25687 1 true [REDUCE sym_caseTr 4 0 0];
   A 25689 1 true [SHIFT 13105]; A 25691 1 true [SHIFT 8664]; A 25693 1 true [SHIFT 10403];
   A 25695 1 true [SHIFT 11358]; A 25697 1 true [SHIFT 13418]; A 25699 1 true [SHIFT 3036];
   A 25701 1 true [SHIFT 3238]; A 25703 1 true [SHIFT 12299]; A 25705 1 true [SHIFT 12569];
   A 25707 1 true [SHIFT 7046]; A 25709 1 true [SHIFT 8141]; A 25711 1 true [SHIFT 11512];
   A 25713 1 true [SHIFT 9310]; A 25715 1 true [SHIFT 5638];
   A 25717 1 true [REDUCE sym_tryTr 4 0 82]; A 25719 1 true [SHIFT 5639];
   A 25721 1 true [REDUCE sym_tryTr 4 0 83]; A 25723 1 true [SHIFT 3004];
   A 25725 1 true [SHIFT 3244]; A 25727 1 true [SHIFT 12436]; A 25729 1 true [SHIFT 13982];
   A 25731 1 true [SHIFT 7674]; A 25733 1 true [SHIFT 13020]; A 25735 1 true [SHIFT 7134];
   A 25737 1 true [SHIFT 5640]; A 25739 1 true [REDUCE sym_tryTr 4 0 84];
   A 25741 1 true [SHIFT 11059]; A 25743 1 false [SHIFT 11131]; A 25745 1 true [SHIFT 14252];
   A 25747 1 true [SHIFT 13702]; A 25749 1 true [SHIFT 8830]; A 25751 1 true [SHIFT 5642];
   A 25753 1 true [REDUCE sym_tryTr 4 0 85]; A 25755 1 true [SHIFT 14005];
   A 25757 1 true [SHIFT 7303]; A 25759 1 true [SHIFT 10798]; A 25761 1 true [SHIFT 3768];
   A 25763 1 true [SHIFT 13821]; A 25765 1 true [SHIFT 6000]; A 25767 1 true [SHIFT 3490];
   A 25769 1 true [SHIFT 8451]; A 25771 1 true [SHIFT 7513]; A 25773 1 true [SHIFT 7253];
   A 25775 1 true [SHIFT 9023]; A 25777 1 true [SHIFT 7729]; A 25779 1 true [SHIFT 8920];
   A 25781 1 true [SHIFT 8122]; A 25783 1 true [SHIFT 5804];
   A 25785 1 true [REDUCE sym__statementTr 1 0 0]; A 25787 1 true [SHIFT 8603];
   A 25789 1 true [SHIFT 5681]; A 25791 1 true [REDUCE sym_gotoTr 2 0 0];
   A 25793 1 true [SHIFT 8410]; A 25795 1 true [SHIFT 7932]; A 25797 1 true [SHIFT 5645];
   A 25799 1 true [REDUCE sym_caseTr 5 0 0]; A 25801 1 true [SHIFT 3554];
   A 25803 1 true [SHIFT 5732]; A 25805 1 true [SHIFT 5734]; A 25807 1 true [SHIFT 7878];
   A 25809 1 true [SHIFT 10407]; A 25811 1 true [SHIFT 13665]; A 25813 1 true [SHIFT 1764];
   A 25815 1 true [SHIFT 3266]; A 25817 1 true [SHIFT 12232]; A 25819 1 true [SHIFT 14353];
   A 25821 1 true [SHIFT 7603]; A 25823 1 true [SHIFT 8297]; A 25825 1 true [SHIFT 5744];
   A 25827 1 true [SHIFT 5750]; A 25829 1 true [SHIFT 5751]; A 25831 1 true [SHIFT 5767];
   A 25833 1 true [SHIFT 7844]; A 25835 1 true [SHIFT 8778]; A 25837 1 true [SHIFT 5695];
   A 25839 1 true [SHIFT 8363]; A 25841 1 true [SHIFT 1769]; A 25843 1 true [SHIFT 3275];
   A 25845 1 true [SHIFT 12115]; A 25847 1 true [SHIFT 5705];
   A 25849 1 true [REDUCE sym_tryTr 5 0 140]; A 25851 1 true [SHIFT 8834];
   A 25853 1 true [SHIFT 5706]; A 25855 1 true [REDUCE sym_tryTr 5 0 141];
   A 25857 1 true [SHIFT 5763]; A 25859 1 true [REDUCE sym_caseTr 6 0 0];
   A 25861 1 true [SHIFT 7022]; A 25863 1 true [SHIFT 5764];
   A 25865 1 true [REDUCE sym_caseTr 7 0 0]; A 25867 1 true [SHIFT 5717];
   A 25869 1 true [REDUCE sym_caseTr 8 0 0]; A 25871 1 true [SHIFT 8915];
   A 25873 1 true [SHIFT 5722]; A 25875 1 true [REDUCE sym_caseTr 9 0 0];
   A 25877 1 true [SHIFT 7380]; A 25879 1 true [SHIFT 5787]; A 25881 1 true [SHIFT 5650];
   A 25883 1 true [SHIFT 5792]; A 25885 1 true [SHIFT 5651]; A 25887 1 true [SHIFT 7195];
   A 25889 1 true [SHIFT 7689]; A 25891 1 true [SHIFT 5709]; A 25893 1 true [SHIFT 14838];
   A 25895 1 true [SHIFT 5680]; A 25897 1 true [REDUCE sym_genericTpl 4 0 60];
   A 25899 1 false [REDUCE sym_genericTpl 4 0 60]; A 25901 1 true [SHIFT 5653];
   A 25903 1 true [SHIFT 2393]; A 25905 1 true [SHIFT 3188]; A 25907 1 true [SHIFT 12430];
   A 25909 1 true [SHIFT 15809]; A 25911 1 true [SHIFT 15596]; A 25913 1 true [SHIFT 2446];
   A 25915 1 true [SHIFT 3200]; A 25917 1 true [SHIFT 12262]; A 25919 1 true [SHIFT 10344];
   A 25921 1 true [SHIFT 1828]; A 25923 1 true [SHIFT 3290]; A 25925 1 true [SHIFT 12411];
   A 25927 1 true [SHIFT 12831]; A 25929 1 true [SHIFT 15175]; A 25931 1 true [SHIFT 8558];
   A 25933 1 true [SHIFT 5654]; A 25935 1 true [SHIFT 1833]; A 25937 1 true [SHIFT 3296];
   A 25939 1 true [SHIFT 12069]; A 25941 1 true [SHIFT 14272]; A 25943 1 true [SHIFT 5656];
   A 25945 1 true [SHIFT 10419]; A 25947 1 true [SHIFT 5657]; A 25949 1 true [SHIFT 6433];
   A 25951 1 true [SHIFT 14870]; A 25953 1 true [SHIFT 15225]; A 25955 1 true [SHIFT 15575];
   A 25957 1 true [SHIFT 5679]; A 25959 1 true [SHIFT 5611]; A 25961 1 true [SHIFT 10334];
   A 25963 1 true [SHIFT 11593]; A 25965 1 true [SHIFT 5606]; A 25967 1 true [SHIFT 9387];
   A 25969 1 false [SHIFT 10804]; A 25971 1 true [REDUCE sym__usesModule 1 0 0];
   A 25973 1 true [SHIFT 11370]; A 25975 1 true [SHIFT 13906]; A 25977 1 true [SHIFT 8707];
   A 25979 1 true [SHIFT 5616]; A 25981 1 true [SHIFT 5617]; A 25983 1 true [SHIFT 5612];
   A 25985 1 true [SHIFT 12225]; A 25987 1 true [SHIFT 7712]; A 25989 1 true [SHIFT 10902];
   A 25991 1 true [SHIFT 10775]; A 25993 1 true [SHIFT 15820]; A 25995 1 true [SHIFT 1335];
   A 25997 1 true [SHIFT 12769]; A 25999 1 true [SHIFT 7469]; A 26001 1 true [SHIFT 765];
   A 26003 1 true [SHIFT 3207]; A 26005 1 true [SHIFT 12392]; A 26007 1 true [SHIFT 13540];
   A 26009 1 true [SHIFT 5788]; A 26011 1 false [SHIFT 10660];
   A 26013 1 true [REDUCE sym_forTr 6 0 187]; A 26015 1 false [SHIFT 10691];
   A 26017 1 true [SHIFT 4078]; A 26019 1 true [SHIFT 5807]; A 26021 1 true [SHIFT 12113];
   A 26023 1 true [SHIFT 3272]; A 26025 1 true [REDUCE sym__genericName 1 0 0];
   A 26027 2 true [REDUCE sym__genericName 1 0 0; SHIFT 3562];
   A 26030 1 true [REDUCE sym_foreachTr 6 0 188]; A 26032 1 true [REDUCE sym_ifElseTr 6 0 191];
   A 26034 1 true [SHIFT 15173]; A 26036 1 true [REDUCE sym_whileTr 4 0 87];
   A 26038 1 true [SHIFT 10821]; A 26040 1 false [SHIFT 11190]; A 26042 1 true [SHIFT 14690];
   A 26044 1 true [REDUCE sym_withTr 4 0 88]; A 26046 1 true [REDUCE sym__statementTr 1 0 5];
   A 26048 1 false [SHIFT 10682];
   A 26050 2 true [REDUCE aux_sym_asmBody_repeat1 2 0 0; SHIFT_REPEAT 11568];
   A 26053 1 true [REDUCE aux_sym_asmBody_repeat1 2 0 0]; A 26055 1 true [SHIFT 10816];
   A 26057 1 true [SHIFT 14255]; A 26059 1 true [REDUCE sym_genericArg 1 0 6];
   A 26061 1 true [SHIFT 10531]; A 26063 1 true [SHIFT 14622]; A 26065 1 true [SHIFT 3603];
   A 26067 1 true [REDUCE sym_ppUsesBlock 4 0 97]; A 26069 1 false [SHIFT 10690];
   A 26071 1 true [REDUCE sym__usesModule 3 0 0];
   A 26073 2 true [REDUCE aux_sym_declExports_repeat1 2 0 0; SHIFT_REPEAT 11358];
   A 26076 1 true [REDUCE sym_ifElseTr 5 0 139]; A 26078 1 false [SHIFT 10668];
   A 26080 2 true [REDUCE aux_sym_labeledStatement_repeat1 2 0 0; SHIFT_REPEAT 15173];
   A 26083 1 true [SHIFT 10745]; A 26085 1 true [SHIFT 4003];
   A 26087 1 true [REDUCE sym_withTr 5 0 142]; A 26089 1 false [SHIFT 10716];
   A 26091 1 false [SHIFT 10667]; A 26093 1 false [SHIFT 10670]; A 26095 1 false [SHIFT 10726];
   A 26097 1 true [REDUCE sym_ifTr 4 0 77]; A 26099 1 true [SHIFT 14552];
   A 26101 1 true [SHIFT 11006]; A 26103 1 true [SHIFT 15585]; A 26105 1 true [SHIFT 4579];
   A 26107 1 true [SHIFT 10980]; A 26109 1 true [SHIFT 14167]; A 26111 1 false [SHIFT 10683];
   A 26113 1 true [SHIFT 4748]; A 26115 1 true [SHIFT 15584];
   A 26117 1 true [REDUCE sym_labeledStatementTr 3 0 0];
   A 26119 1 true [REDUCE sym_ppUsesBlock 2 0 18]; A 26121 1 true [SHIFT 4812];
   A 26123 1 true [SHIFT 12123]; A 26125 1 true [SHIFT 15893]; A 26127 1 false [SHIFT 10694];
   A 26129 1 true [SHIFT 4847]; A 26131 1 true [SHIFT 4882]; A 26133 1 true [SHIFT 4911];
   A 26135 1 true [SHIFT 4948]; A 26137 1 true [SHIFT 4986];
   A 26139 1 true [REDUCE sym_genericArg 2 0 61]; A 26141 1 true [SHIFT 10525];
   A 26143 1 true [SHIFT 4371]; A 26145 1 true [SHIFT 5006]; A 26147 1 true [SHIFT 5021];
   A 26149 1 true [SHIFT 5035]; A 26151 1 true [SHIFT 5049]; A 26153 1 true [SHIFT 5062];
   A 26155 1 true [SHIFT 5078]; A 26157 1 true [SHIFT 5091]; A 26159 1 true [SHIFT 5103];
   A 26161 1 true [SHIFT 5113]; A 26163 1 true [SHIFT 5123]; A 26165 1 true [SHIFT 5134];
   A 26167 1 true [SHIFT 5145]; A 26169 1 true [SHIFT 5157]; A 26171 1 true [SHIFT 5167];
   A 26173 1 true [SHIFT 5178]; A 26175 1 true [SHIFT 5187]; A 26177 1 true [SHIFT 5196];
   A 26179 1 true [SHIFT 5205]; A 26181 1 true [SHIFT 5216]; A 26183 1 true [SHIFT 5225];
   A 26185 1 true [SHIFT 5234]; A 26187 1 true [SHIFT 11568];
   A 26189 1 true [REDUCE sym_asmBody 1 0 0]; A 26191 1 true [SHIFT 5312];
   A 26193 1 true [SHIFT 5335]; A 26195 1 true [REDUCE sym_ppUsesBlock 3 0 47];
   A 26197 1 true [SHIFT 5350]; A 26199 1 true [SHIFT 5364]; A 26201 1 true [SHIFT 3979];
   A 26203 1 true [SHIFT 5376]; A 26205 1 true [SHIFT 5388]; A 26207 1 true [SHIFT 5396];
   A 26209 1 true [SHIFT 3845]; A 26211 1 true [SHIFT 12339]; A 26213 1 true [SHIFT 11055];
   A 26215 1 true [SHIFT 7353]; A 26217 1 true [SHIFT 8554];
   A 26219 1 true [REDUCE sym_declArg 5 0 201]; A 26221 1 true [SHIFT 10045];
   A 26223 1 true [SHIFT 11094]; A 26225 1 false [SHIFT 3656]; A 26227 1 true [SHIFT 6001];
   A 26229 1 true [SHIFT 4020]; A 26231 1 true [SHIFT 11930]
  ].

Definition ts_parse_actions_26233 : list (Z * list TSParseActionEntry) :=
  [
   A 26233 1 true [SHIFT 5891]; A 26235 1 true [REDUCE sym_declArg 5 0 113];
   A 26237 1 true [SHIFT 15155];
   A 26239 2 true [REDUCE aux_sym_declExport_repeat1 2 0 0; SHIFT_REPEAT 5434];
   A 26242 1 true [SHIFT 9303]; A 26244 1 true [SHIFT 7820]; A 26246 1 false [SHIFT 3671];
   A 26248 1 true [SHIFT 8512]; A 26250 1 true [SHIFT 8218]; A 26252 1 true [SHIFT 7615];
   A 26254 1 false [SHIFT 3678]; A 26256 1 true [SHIFT 7514]; A 26258 1 true [SHIFT 7466];
   A 26260 1 false [SHIFT 3684]; A 26262 1 true [SHIFT 7244]; A 26264 1 true [SHIFT 7247];
   A 26266 1 true [SHIFT 12937]; A 26268 1 false [SHIFT 3688]; A 26270 1 true [SHIFT 9132];
   A 26272 1 true [SHIFT 9142]; A 26274 1 false [SHIFT 3551]; A 26276 1 false [SHIFT 3693];
   A 26278 1 true [SHIFT 7720]; A 26280 1 true [SHIFT 7726]; A 26282 1 true [SHIFT 9136];
   A 26284 1 true [SHIFT 10966]; A 26286 1 true [SHIFT 15530]; A 26288 1 false [SHIFT 3697];
   A 26290 1 true [SHIFT 8909]; A 26292 1 true [SHIFT 8912]; A 26294 1 true [SHIFT 9144];
   A 26296 1 false [SHIFT 3702]; A 26298 1 true [SHIFT 8096]; A 26300 1 true [SHIFT 8106];
   A 26302 1 false [SHIFT 3708]; A 26304 1 true [SHIFT 9006]; A 26306 1 true [SHIFT 9018];
   A 26308 1 false [SHIFT 3713]; A 26310 1 true [SHIFT 8561]; A 26312 1 true [SHIFT 8567];
   A 26314 1 true [SHIFT 10411]; A 26316 1 true [SHIFT 10987]; A 26318 1 false [SHIFT 3719];
   A 26320 1 true [SHIFT 8136]; A 26322 1 true [SHIFT 8151]; A 26324 1 false [SHIFT 3726];
   A 26326 1 true [SHIFT 3499]; A 26328 1 true [SHIFT 3511]; A 26330 1 false [SHIFT 3737];
   A 26332 1 true [SHIFT 7823]; A 26334 1 true [SHIFT 7826]; A 26336 1 true [SHIFT 7942];
   A 26338 1 false [SHIFT 3741]; A 26340 1 true [SHIFT 7596]; A 26342 1 true [SHIFT 7599];
   A 26344 1 false [SHIFT 3716]; A 26346 1 true [SHIFT 8348]; A 26348 1 true [SHIFT 8357];
   A 26350 1 false [SHIFT 3745]; A 26352 1 true [SHIFT 8588]; A 26354 1 true [SHIFT 8196];
   A 26356 1 false [SHIFT 3751]; A 26358 1 true [SHIFT 8752]; A 26360 1 true [SHIFT 8759];
   A 26362 2 true [REDUCE aux_sym_legacyFormat_repeat1 2 0 0; SHIFT_REPEAT 5059];
   A 26365 1 true [SHIFT 1768]; A 26367 1 true [SHIFT 3273]; A 26369 1 true [SHIFT 12068];
   A 26371 1 false [SHIFT 3755]; A 26373 1 true [SHIFT 8256]; A 26375 1 true [SHIFT 8270];
   A 26377 1 true [REDUCE sym_finalization 2 0 0]; A 26379 1 false [SHIFT 3760];
   A 26381 1 true [SHIFT 8826]; A 26383 1 true [SHIFT 8831]; A 26385 1 false [SHIFT 3538];
   A 26387 1 true [SHIFT 8408]; A 26389 1 true [SHIFT 8412]; A 26391 1 false [SHIFT 3765];
   A 26393 1 true [SHIFT 7036]; A 26395 1 true [SHIFT 6991];
   A 26397 2 true [REDUCE aux_sym_labeledStatement_repeat1 2 0 0; SHIFT_REPEAT 14131];
   A 26400 1 false [SHIFT 3476]; A 26402 1 true [SHIFT 8898]; A 26404 1 true [SHIFT 8901];
   A 26406 1 true [SHIFT 11573]; A 26408 1 false [SHIFT 3480]; A 26410 1 true [SHIFT 7366];
   A 26412 1 true [SHIFT 7369]; A 26414 1 false [SHIFT 3570]; A 26416 1 false [SHIFT 3484];
   A 26418 1 true [SHIFT 7188]; A 26420 1 true [SHIFT 9236]; A 26422 1 true [SHIFT 7191];
   A 26424 1 true [SHIFT 9241]; A 26426 1 false [SHIFT 3526]; A 26428 1 true [SHIFT 8356];
   A 26430 1 true [SHIFT 1780]; A 26432 1 true [SHIFT 3284]; A 26434 1 true [SHIFT 12231];
   A 26436 1 false [SHIFT 3488]; A 26438 1 true [SHIFT 7684]; A 26440 1 true [SHIFT 14131];
   A 26442 1 true [SHIFT 7687]; A 26444 1 false [SHIFT 3763]; A 26446 1 true [SHIFT 8371];
   A 26448 1 true [SHIFT 12441]; A 26450 1 true [SHIFT 9039]; A 26452 1 true [SHIFT 11236];
   A 26454 1 true [SHIFT 13542]; A 26456 1 true [REDUCE sym_initialization 2 0 0];
   A 26458 1 true [SHIFT 2433]; A 26460 1 true [SHIFT 3177]; A 26462 1 true [SHIFT 12263];
   A 26464 1 true [SHIFT 8426]; A 26466 1 false [SHIFT 3624]; A 26468 1 true [SHIFT 9281];
   A 26470 1 true [SHIFT 9284]; A 26472 1 true [SHIFT 14458];
   A 26474 1 true [REDUCE aux_sym_declClass_repeat1 2 0 0];
   A 26476 1 true [REDUCE sym_declArg 6 0 267]; A 26478 1 true [SHIFT 10532];
   A 26480 1 false [SHIFT 3675]; A 26482 1 true [SHIFT 7894]; A 26484 1 true [SHIFT 7897];
   A 26486 1 true [SHIFT 9042]; A 26488 1 false [SHIFT 3503]; A 26490 1 true [SHIFT 7543];
   A 26492 1 true [SHIFT 1832]; A 26494 1 true [SHIFT 3294]; A 26496 1 true [SHIFT 12060];
   A 26498 1 true [SHIFT 7547]; A 26500 1 true [SHIFT 843]; A 26502 1 true [SHIFT 3212];
   A 26504 1 true [SHIFT 12452]; A 26506 1 true [SHIFT 7293]; A 26508 1 false [SHIFT 3515];
   A 26510 1 true [SHIFT 9351]; A 26512 1 true [SHIFT 9354];
   A 26514 1 true [REDUCE sym__initializationBegin 2 0 0]; A 26516 1 false [SHIFT 3607];
   A 26518 1 true [SHIFT 9605]; A 26520 1 true [SHIFT 1844]; A 26522 1 true [SHIFT 3304];
   A 26524 1 true [SHIFT 12095]; A 26526 1 false [SHIFT 3729];
   A 26528 1 true [REDUCE sym_declExport 2 0 0]; A 26530 1 true [SHIFT 8543];
   A 26532 1 true [SHIFT 9600]; A 26534 1 false [SHIFT 3531]; A 26536 1 true [SHIFT 9017];
   A 26538 1 false [SHIFT 3559]; A 26540 1 true [SHIFT 9021]; A 26542 1 true [SHIFT 8125];
   A 26544 1 false [SHIFT 3600]; A 26546 1 true [SHIFT 8236]; A 26548 1 true [SHIFT 12326];
   A 26550 1 true [REDUCE sym_typerefArgs 1 0 0]; A 26552 1 true [REDUCE sym_declArg 2 0 11];
   A 26554 1 true [SHIFT 3347]; A 26556 1 true [REDUCE sym_operatorDot 3 0 25];
   A 26558 1 false [REDUCE sym_operatorDot 3 0 25];
   A 26560 1 true [REDUCE aux_sym_declPropArgs_repeat1 2 0 0];
   A 26562 1 true [REDUCE sym_declArg 3 0 94]; A 26564 1 true [SHIFT 12154];
   A 26566 1 true [REDUCE sym_declArg 3 0 126]; A 26568 1 true [SHIFT 3373];
   A 26570 1 true [SHIFT 12259]; A 26572 1 true [SHIFT 12261];
   A 26574 1 true [REDUCE sym_declArg 3 0 24]; A 26576 1 true [SHIFT 3386];
   A 26578 1 true [SHIFT 10736]; A 26580 1 true [SHIFT 14511]; A 26582 1 false [SHIFT 3669];
   A 26584 1 true [SHIFT 8763]; A 26586 1 false [SHIFT 3550]; A 26588 1 true [SHIFT 8918];
   A 26590 1 true [SHIFT 14745]; A 26592 1 true [SHIFT 11534]; A 26594 1 true [SHIFT 7066];
   A 26596 1 true [SHIFT 7043]; A 26598 1 true [SHIFT 774]; A 26600 1 true [SHIFT 3225];
   A 26602 1 true [SHIFT 12124]; A 26604 1 true [SHIFT 8242]; A 26606 1 true [SHIFT 15624];
   A 26608 1 false [SHIFT 3535]; A 26610 1 true [SHIFT 7623]; A 26612 1 true [SHIFT 12296];
   A 26614 1 false [SHIFT 3647]; A 26616 1 true [SHIFT 3369]; A 26618 1 true [SHIFT 7633];
   A 26620 2 true [REDUCE aux_sym_labeledStatement_repeat1 2 0 0; SHIFT_REPEAT 14745];
   A 26623 1 true [SHIFT 7644]; A 26625 1 true [SHIFT 12304];
   A 26627 1 true [REDUCE sym_legacyFormat 1 0 0]; A 26629 1 false [SHIFT 3565];
   A 26631 1 true [SHIFT 9184]; A 26633 1 true [SHIFT 9188]; A 26635 1 true [SHIFT 10978];
   A 26637 1 true [SHIFT 4101]; A 26639 1 true [SHIFT 3404]; A 26641 1 true [SHIFT 12328];
   A 26643 1 true [SHIFT 2971]; A 26645 1 true [SHIFT 3242]; A 26647 1 true [SHIFT 12395];
   A 26649 1 true [SHIFT 12337]; A 26651 1 true [SHIFT 10876]; A 26653 1 false [SHIFT 3584];
   A 26655 1 true [SHIFT 12346]; A 26657 1 true [SHIFT 7655]; A 26659 1 true [SHIFT 12356];
   A 26661 1 true [REDUCE sym_typerefArgs 2 0 0]; A 26663 1 false [SHIFT 3613];
   A 26665 1 true [SHIFT 7456]; A 26667 1 true [SHIFT 7658]; A 26669 1 true [SHIFT 4133];
   A 26671 1 true [SHIFT 15667]; A 26673 1 true [SHIFT 7459]; A 26675 1 false [SHIFT 3605];
   A 26677 1 true [SHIFT 7127]; A 26679 1 true [REDUCE sym_declArg 4 0 66];
   A 26681 1 true [SHIFT 7130]; A 26683 1 true [SHIFT 10925]; A 26685 1 false [SHIFT 3615];
   A 26687 1 true [SHIFT 8748]; A 26689 1 true [REDUCE sym_declArg 4 0 181];
   A 26691 1 true [SHIFT 3203]; A 26693 1 true [REDUCE sym_declArg 4 0 154];
   A 26695 1 true [SHIFT 12407]; A 26697 1 true [SHIFT 2438]; A 26699 1 true [SHIFT 3328];
   A 26701 1 true [SHIFT 12058]; A 26703 1 true [SHIFT 10944]; A 26705 1 false [SHIFT 3621];
   A 26707 1 true [SHIFT 12309]; A 26709 1 true [SHIFT 12417]; A 26711 1 true [SHIFT 8782];
   A 26713 1 true [SHIFT 12324]; A 26715 1 true [SHIFT 12423];
   A 26717 1 true [REDUCE sym_operatorName 1 0 0];
   A 26719 1 false [REDUCE sym_operatorName 1 0 0]; A 26721 1 true [SHIFT 8786];
   A 26723 1 true [SHIFT 12332]; A 26725 1 true [SHIFT 12428]; A 26727 1 false [SHIFT 3614];
   A 26729 1 true [SHIFT 12342]; A 26731 1 true [SHIFT 12434]; A 26733 1 true [SHIFT 7802];
   A 26735 1 true [SHIFT 12350]; A 26737 1 true [SHIFT 12440]; A 26739 1 true [SHIFT 10535];
   A 26741 1 true [SHIFT 2923]; A 26743 1 true [SHIFT 3255]; A 26745 1 true [SHIFT 12182];
   A 26747 1 true [SHIFT 8756]; A 26749 1 false [SHIFT 3640]; A 26751 1 false [SHIFT 3676];
   A 26753 1 true [SHIFT 9299]; A 26755 1 true [SHIFT 11212]; A 26757 1 true [SHIFT 7560];
   A 26759 1 true [SHIFT 11138]; A 26761 1 true [SHIFT 11535]; A 26763 1 true [SHIFT 9365];
   A 26765 1 true [SHIFT 7632]; A 26767 1 true [SHIFT 3032]; A 26769 1 true [SHIFT 11045];
   A 26771 1 true [SHIFT 2372]; A 26773 1 true [SHIFT 3185]; A 26775 1 true [SHIFT 5666];
   A 26777 1 true [SHIFT 1838]; A 26779 1 true [SHIFT 3302]; A 26781 1 true [SHIFT 2743];
   A 26783 1 true [SHIFT 14048];
   A 26785 1 true [REDUCE aux_sym_declVariantClause_repeat1 2 0 0]; A 26787 1 true [SHIFT 2269];
   A 26789 1 true [SHIFT 4834]; A 26791 1 true [SHIFT 2097]; A 26793 1 true [SHIFT 10854];
   A 26795 1 true [SHIFT 2270]; A 26797 1 true [SHIFT 4835]; A 26799 1 true [SHIFT 1774];
   A 26801 1 true [SHIFT 3282]; A 26803 1 true [SHIFT 1841]; A 26805 1 true [SHIFT 3303];
   A 26807 1 true [SHIFT 7842]; A 26809 1 true [SHIFT 1615]; A 26811 1 true [SHIFT 4893];
   A 26813 1 true [SHIFT 1617]; A 26815 1 true [SHIFT 4894]; A 26817 1 true [SHIFT 11178];
   A 26819 1 true [SHIFT 13897]; A 26821 1 true [SHIFT 11189];
   A 26823 1 true [REDUCE sym_genericArg 3 0 117]; A 26825 1 true [SHIFT 14059];
   A 26827 1 true [SHIFT 7050]; A 26829 1 true [SHIFT 8024]; A 26831 1 true [SHIFT 11229];
   A 26833 1 true [SHIFT 7736]; A 26835 1 true [SHIFT 7856]; A 26837 1 true [SHIFT 3016];
   A 26839 1 true [SHIFT 10737]; A 26841 1 true [SHIFT 2347]; A 26843 1 true [SHIFT 11061];
   A 26845 1 true [SHIFT 14710]; A 26847 1 true [SHIFT 9075]; A 26849 1 true [SHIFT 9138];
   A 26851 1 true [SHIFT 2215]; A 26853 1 true [SHIFT 5489]; A 26855 1 true [SHIFT 1857];
   A 26857 1 true [SHIFT 3308]; A 26859 1 true [SHIFT 2226]; A 26861 1 true [SHIFT 4843];
   A 26863 1 true [SHIFT 11201]; A 26865 1 true [SHIFT 11124];
   A 26867 1 true [REDUCE sym_declEnumValue 1 0 6]; A 26869 1 true [SHIFT 3497];
   A 26871 1 true [SHIFT 7666]; A 26873 1 true [SHIFT 1638]; A 26875 1 true [SHIFT 4896];
   A 26877 1 true [SHIFT 1639]; A 26879 1 true [SHIFT 4897];
   A 26881 1 true [REDUCE aux_sym__exceptionHandlersTr_repeat1 1 0 0];
   A 26883 1 true [SHIFT 1398]; A 26885 1 true [REDUCE sym__exceptionHandlersTr 1 0 0];
   A 26887 1 true [SHIFT 1640]; A 26889 1 true [SHIFT 4898]; A 26891 1 true [SHIFT 11101];
   A 26893 1 true [SHIFT 1641]; A 26895 1 true [SHIFT 4899];
   A 26897 2 true [REDUCE aux_sym__defProcBody_repeat1 2 0 109; SHIFT_REPEAT 10411];
   A 26900 1 true [REDUCE aux_sym__defProcBody_repeat1 2 0 109]; A 26902 1 true [SHIFT 9148];
   A 26904 1 true [SHIFT 5897]; A 26906 1 true [SHIFT 2004]; A 26908 1 true [SHIFT 10947];
   A 26910 1 true [SHIFT 1777]; A 26912 1 true [SHIFT 3283]; A 26914 1 true [SHIFT 5920];
   A 26916 1 true [SHIFT 7601]; A 26918 1 true [SHIFT 1664]; A 26920 1 true [SHIFT 4900];
   A 26922 1 true [SHIFT 1665]; A 26924 1 true [SHIFT 4901]; A 26926 1 true [SHIFT 11115];
   A 26928 1 true [SHIFT 11184]; A 26930 1 true [SHIFT 745]; A 26932 1 true [SHIFT 3232];
   A 26934 1 true [SHIFT 11192]; A 26936 1 true [SHIFT 245]; A 26938 1 true [SHIFT 10970];
   A 26940 1 true [SHIFT 5953]; A 26942 1 true [SHIFT 5955]; A 26944 1 true [SHIFT 7747];
   A 26946 1 true [SHIFT 7832]; A 26948 1 true [SHIFT 2750]; A 26950 1 true [SHIFT 2280];
   A 26952 1 true [SHIFT 4861]; A 26954 1 true [SHIFT 2281]; A 26956 1 true [SHIFT 4862];
   A 26958 1 true [SHIFT 5962]; A 26960 1 true [SHIFT 6381]; A 26962 1 true [SHIFT 7852];
   A 26964 1 true [SHIFT 7087];
   A 26966 2 true [REDUCE aux_sym_declLabels_repeat1 2 0 0; SHIFT_REPEAT 13897];
   A 26969 1 true [SHIFT 6640]; A 26971 1 true [SHIFT 7197]; A 26973 1 true [SHIFT 8164];
   A 26975 1 true [SHIFT 5981]; A 26977 1 true [SHIFT 5982]; A 26979 1 true [SHIFT 5986];
   A 26981 1 true [SHIFT 5987]; A 26983 1 true [SHIFT 11099]; A 26985 1 true [SHIFT 7917];
   A 26987 1 true [SHIFT 12053]; A 26989 1 true [SHIFT 10577];
   A 26991 2 true [REDUCE aux_sym__procAttributeNoExt_repeat1 2 0 55; SHIFT_REPEAT 5807];
   A 26994 1 true [REDUCE aux_sym__procAttributeNoExt_repeat1 2 0 55];
   A 26996 1 true [SHIFT 5993]; A 26998 1 true [SHIFT 13315];
   A 27000 2 true [REDUCE aux_sym_declVariantClause_repeat1 2 0 0; SHIFT_REPEAT 13121];
   A 27003 1 true [SHIFT 7681]; A 27005 1 true [SHIFT 6134]; A 27007 1 true [SHIFT 11510];
   A 27009 1 true [SHIFT 5904]; A 27011 1 true [SHIFT 5951];
   A 27013 1 true [REDUCE sym_declVariantField 3 0 94]; A 27015 1 true [SHIFT 5893];
   A 27017 1 true [SHIFT 2216]; A 27019 1 true [SHIFT 5492]; A 27021 1 true [SHIFT 6078];
   A 27023 1 true [SHIFT 7481]; A 27025 1 true [SHIFT 13349]; A 27027 1 true [SHIFT 5878];
   A 27029 1 true [SHIFT 5995]; A 27031 1 true [SHIFT 5989]; A 27033 1 true [SHIFT 11090];
   A 27035 1 true [SHIFT 2227]; A 27037 1 true [SHIFT 4864]; A 27039 1 true [SHIFT 2990];
   A 27041 1 true [SHIFT 3261]; A 27043 1 true [SHIFT 736]; A 27045 1 true [SHIFT 3224];
   A 27047 1 true [SHIFT 1896]; A 27049 1 true [SHIFT 10805]; A 27051 1 true [SHIFT 5912];
   A 27053 1 true [SHIFT 5915]; A 27055 1 true [REDUCE sym_declVariantField 4 0 154];
   A 27057 1 true [SHIFT 2228]; A 27059 1 true [SHIFT 4890]; A 27061 1 true [SHIFT 707];
   A 27063 1 true [SHIFT 4765]; A 27065 1 true [SHIFT 1900]; A 27067 1 true [SHIFT 10826];
   A 27069 1 true [SHIFT 6118]; A 27071 1 true [SHIFT 5939]; A 27073 1 true [SHIFT 5940];
   A 27075 1 true [SHIFT 848]; A 27077 1 true [SHIFT 10842]; A 27079 1 true [SHIFT 7205];
   A 27081 1 true [SHIFT 833]; A 27083 1 true [SHIFT 4774];
   A 27085 2 true [REDUCE aux_sym_rttiAttributes_repeat2 2 0 0; SHIFT_REPEAT 4009];
   A 27088 1 true [SHIFT 715]; A 27090 1 true [SHIFT 4768]; A 27092 1 true [SHIFT 1580];
   A 27094 1 true [SHIFT 4924]; A 27096 1 true [SHIFT 1561]; A 27098 1 true [SHIFT 4925];
   A 27100 1 true [SHIFT 1908]; A 27102 1 true [SHIFT 10838]; A 27104 1 true [SHIFT 834];
   A 27106 1 true [SHIFT 4775]; A 27108 1 true [SHIFT 7750]; A 27110 1 true [SHIFT 6021];
   A 27112 1 true [SHIFT 1604]; A 27114 1 true [SHIFT 4930]; A 27116 1 true [SHIFT 716];
   A 27118 1 true [SHIFT 4769]; A 27120 1 true [SHIFT 1605]; A 27122 1 true [SHIFT 4931];
   A 27124 1 true [SHIFT 1606]; A 27126 1 true [SHIFT 4932]; A 27128 1 true [SHIFT 1607];
   A 27130 1 true [SHIFT 4933]; A 27132 1 true [SHIFT 7164]; A 27134 1 true [SHIFT 7008];
   A 27136 1 true [SHIFT 2295]; A 27138 1 true [SHIFT 4491];
   A 27140 2 true [REDUCE aux_sym_genericArgs_repeat1 2 0 0; SHIFT_REPEAT 11857];
   A 27143 1 true [SHIFT 2300]; A 27145 1 true [SHIFT 4493]; A 27147 1 true [SHIFT 14547];
   A 27149 1 true [SHIFT 9334]; A 27151 1 true [SHIFT 1619]; A 27153 1 true [SHIFT 4934];
   A 27155 1 true [SHIFT 1686]; A 27157 1 true [SHIFT 4935]; A 27159 1 true [SHIFT 9357];
   A 27161 1 true [SHIFT 7072]; A 27163 1 true [SHIFT 3137]; A 27165 1 true [SHIFT 1793];
   A 27167 1 true [SHIFT 3287]; A 27169 1 true [SHIFT 1765]; A 27171 1 true [SHIFT 3271];
   A 27173 1 true [SHIFT 718]; A 27175 1 true [SHIFT 4770]; A 27177 1 true [SHIFT 9160];
   A 27179 2 true [REDUCE aux_sym__procAttributesPp_repeat2 2 0 55; SHIFT_REPEAT 4092];
   A 27182 1 true [REDUCE aux_sym__procAttributesPp_repeat2 2 0 55];
   A 27184 1 true [SHIFT 9045]; A 27186 1 true [SHIFT 7165]; A 27188 1 true [SHIFT 688];
   A 27190 1 true [SHIFT 2307]; A 27192 1 true [SHIFT 4865]; A 27194 1 true [SHIFT 691];
   A 27196 1 true [SHIFT 4766]; A 27198 1 true [SHIFT 7794]; A 27200 1 true [SHIFT 6054];
   A 27202 1 true [SHIFT 2308]; A 27204 1 true [SHIFT 4866]; A 27206 1 true [SHIFT 3748];
   A 27208 1 true [SHIFT 2309]; A 27210 1 true [SHIFT 4867]; A 27212 1 true [SHIFT 6056];
   A 27214 1 true [SHIFT 1486]; A 27216 1 true [SHIFT 10887]; A 27218 1 true [SHIFT 9046];
   A 27220 1 true [SHIFT 1491]; A 27222 1 true [SHIFT 10910]; A 27224 1 true [SHIFT 14762];
   A 27226 1 true [SHIFT 2310]; A 27228 1 true [SHIFT 4868]; A 27230 1 true [SHIFT 6706];
   A 27232 1 true [SHIFT 1589]; A 27234 1 true [SHIFT 4959]; A 27236 1 true [SHIFT 1595];
   A 27238 1 true [SHIFT 4960]; A 27240 1 true [SHIFT 2756]; A 27242 1 true [SHIFT 1499];
   A 27244 1 true [SHIFT 10938]; A 27246 1 true [SHIFT 12132]; A 27248 1 true [SHIFT 2395];
   A 27250 1 true [SHIFT 3320]; A 27252 1 true [SHIFT 2425]; A 27254 1 true [SHIFT 3325];
   A 27256 1 true [SHIFT 7268]; A 27258 1 true [SHIFT 2233]; A 27260 1 true [SHIFT 4830];
   A 27262 1 true [SHIFT 1557]; A 27264 1 true [SHIFT 4965]; A 27266 1 true [SHIFT 1558];
   A 27268 1 true [SHIFT 4966]; A 27270 1 true [SHIFT 1559]; A 27272 1 true [SHIFT 4967];
   A 27274 1 true [SHIFT 1560]; A 27276 1 true [SHIFT 4968]; A 27278 1 true [SHIFT 7351];
   A 27280 1 true [SHIFT 6075]; A 27282 1 true [SHIFT 1547]; A 27284 1 true [SHIFT 4971];
   A 27286 1 true [SHIFT 1548]; A 27288 1 true [SHIFT 4972]; A 27290 1 true [SHIFT 2236];
   A 27292 1 true [SHIFT 4831]; A 27294 1 true [SHIFT 7859]; A 27296 1 true [SHIFT 12180];
   A 27298 1 true [SHIFT 2744]; A 27300 1 true [SHIFT 11523]; A 27302 1 true [SHIFT 7265];
   A 27304 1 true [SHIFT 2749]; A 27306 1 true [SHIFT 14285]; A 27308 1 true [SHIFT 2748];
   A 27310 1 true [SHIFT 10067]; A 27312 1 true [REDUCE sym_exprArgs 2 0 81];
   A 27314 1 true [SHIFT 11143]; A 27316 1 true [SHIFT 11147]; A 27318 1 true [SHIFT 254];
   A 27320 1 true [SHIFT 10977]; A 27322 1 true [SHIFT 2944]; A 27324 1 true [SHIFT 3241];
   A 27326 1 true [SHIFT 8117]; A 27328 1 true [SHIFT 10529]; A 27330 1 true [SHIFT 7041];
   A 27332 1 true [SHIFT 12323]; A 27334 1 true [SHIFT 2755]; A 27336 1 true [SHIFT 6561];
   A 27338 1 true [SHIFT 6115]; A 27340 1 true [SHIFT 2741]; A 27342 1 true [SHIFT 6064];
   A 27344 1 true [SHIFT 11205]; A 27346 1 true [SHIFT 2746]; A 27348 1 true [SHIFT 6065];
   A 27350 1 true [SHIFT 11040]; A 27352 1 true [SHIFT 14450]; A 27354 1 true [SHIFT 6071];
   A 27356 1 true [SHIFT 2237]; A 27358 1 true [SHIFT 4832]; A 27360 1 true [SHIFT 12401];
   A 27362 1 true [SHIFT 6081]; A 27364 1 true [SHIFT 2751];
   A 27366 2 true [REDUCE aux_sym_defProc_repeat1 2 0 50; SHIFT_REPEAT 11236];
   A 27369 1 true [REDUCE aux_sym_defProc_repeat1 2 0 50]; A 27371 1 true [SHIFT 11199];
   A 27373 1 true [SHIFT 2752]; A 27375 1 true [SHIFT 2754];
   A 27377 1 true [REDUCE aux_sym_typerefArgs_repeat1 2 0 0]; A 27379 1 true [SHIFT 9087];
   A 27381 1 true [SHIFT 12051]; A 27383 1 true [SHIFT 1721]; A 27385 1 true [SHIFT 10961];
   A 27387 1 true [SHIFT 2753]; A 27389 1 true [SHIFT 2155]; A 27391 1 true [SHIFT 4869];
   A 27393 1 true [SHIFT 2757]; A 27395 1 true [SHIFT 2758]; A 27397 1 true [SHIFT 9179];
   A 27399 1 true [SHIFT 1725]; A 27401 1 true [SHIFT 10973]; A 27403 1 true [SHIFT 2156];
   A 27405 1 true [SHIFT 4870]; A 27407 1 true [SHIFT 12081]; A 27409 1 true [SHIFT 2738];
   A 27411 1 true [REDUCE aux_sym_exprTpl_repeat1 2 0 0]; A 27413 1 true [SHIFT 2238];
   A 27415 1 true [SHIFT 4833]; A 27417 1 true [SHIFT 2740]; A 27419 1 true [SHIFT 2742];
   A 27421 1 true [SHIFT 10633]; A 27423 1 true [SHIFT 12106]; A 27425 1 true [SHIFT 2745];
   A 27427 1 true [SHIFT 10979]; A 27429 1 true [SHIFT 14766]; A 27431 1 true [SHIFT 2747];
   A 27433 1 true [SHIFT 10442]; A 27435 1 true [SHIFT 806]; A 27437 1 true [SHIFT 10748];
   A 27439 1 true [SHIFT 2739]; A 27441 1 true [REDUCE sym__exceptionHandlersTr 2 0 0];
   A 27443 1 true [SHIFT 12126]; A 27445 1 true [SHIFT 9177]; A 27447 1 true [SHIFT 6051];
   A 27449 1 true [SHIFT 11116]; A 27451 1 true [SHIFT 2449]; A 27453 1 true [SHIFT 11043];
   A 27455 1 true [SHIFT 8076]; A 27457 1 true [SHIFT 6116]; A 27459 1 true [SHIFT 1732];
   A 27461 1 true [SHIFT 10988]; A 27463 1 true [SHIFT 6006]; A 27465 1 true [SHIFT 3311];
   A 27467 1 true [SHIFT 11150]; A 27469 1 true [SHIFT 6057];
   A 27471 2 true [REDUCE aux_sym_ppBlock_repeat2 2 0 0; SHIFT_REPEAT 1321];
   A 27474 1 true [SHIFT 9102]; A 27476 1 true [SHIFT 11070]; A 27478 1 true [SHIFT 9065];
   A 27480 2 true [REDUCE aux_sym_type_repeat1 2 0 0; SHIFT_REPEAT 10045];
   A 27483 1 true [REDUCE aux_sym_type_repeat1 2 0 0]; A 27485 1 true [SHIFT 11142];
   A 27487 1 true [SHIFT 2453]; A 27489 1 true [SHIFT 11053];
   A 27491 1 true [REDUCE sym_exprArgs 1 0 3]; A 27493 1 true [SHIFT 9066];
   A 27495 1 true [SHIFT 9088]; A 27497 1 true [SHIFT 8118]; A 27499 1 true [SHIFT 816];
   A 27501 1 true [SHIFT 3210]; A 27503 1 true [SHIFT 3018]; A 27505 1 true [SHIFT 3253];
   A 27507 1 true [SHIFT 7032]; A 27509 1 true [SHIFT 781]; A 27511 1 true [SHIFT 8145];
   A 27513 1 true [SHIFT 287]; A 27515 1 true [SHIFT 10991]; A 27517 1 true [SHIFT 7168];
   A 27519 1 true [SHIFT 11128]; A 27521 1 true [SHIFT 9176]; A 27523 1 true [SHIFT 4009];
   A 27525 1 true [SHIFT 8536]; A 27527 1 true [REDUCE sym_genericArg 4 0 174];
   A 27529 1 true [SHIFT 7413]; A 27531 1 true [SHIFT 9089]; A 27533 1 true [SHIFT 1829];
   A 27535 1 true [SHIFT 3293]; A 27537 1 true [SHIFT 9091]; A 27539 1 true [SHIFT 6079];
   A 27541 1 true [SHIFT 7991]; A 27543 1 true [SHIFT 12314]; A 27545 1 true [SHIFT 8023];
   A 27547 1 true [SHIFT 2225]; A 27549 1 true [SHIFT 4728]; A 27551 1 true [SHIFT 6080];
   A 27553 1 true [SHIFT 12325];
   A 27555 2 true [REDUCE aux_sym__ppStatementBlock_repeat2 2 0 0; SHIFT_REPEAT 5925];
   A 27558 1 true [SHIFT 12333]; A 27560 1 true [SHIFT 2435]; A 27562 1 true [SHIFT 3309];
   A 27564 1 true [SHIFT 7847]; A 27566 1 true [SHIFT 7743]; A 27568 1 true [SHIFT 12343];
   A 27570 1 true [SHIFT 11084]; A 27572 1 true [SHIFT 3042]; A 27574 1 true [SHIFT 3254];
   A 27576 1 true [SHIFT 9173]; A 27578 1 true [SHIFT 12353]; A 27580 1 true [SHIFT 11121];
   A 27582 1 true [SHIFT 7544]; A 27584 1 true [SHIFT 2031]; A 27586 1 true [SHIFT 11032];
   A 27588 1 true [SHIFT 7139]; A 27590 1 true [SHIFT 6130]; A 27592 1 true [SHIFT 6028];
   A 27594 1 true [SHIFT 2165]; A 27596 1 true [SHIFT 4823]; A 27598 1 true [SHIFT 2166];
   A 27600 1 true [SHIFT 4824]; A 27602 1 true [SHIFT 818]; A 27604 1 true [SHIFT 10763];
   A 27606 1 true [SHIFT 7855]; A 27608 1 true [SHIFT 701]; A 27610 1 true [SHIFT 3223];
   A 27612 1 true [SHIFT 3015]; A 27614 1 true [SHIFT 11009]; A 27616 1 true [SHIFT 727];
   A 27618 1 true [SHIFT 4771]; A 27620 1 true [SHIFT 14814]; A 27622 1 true [SHIFT 2052];
   A 27624 1 true [SHIFT 11575]; A 27626 1 true [SHIFT 6282]; A 27628 1 true [SHIFT 751];
   A 27630 1 true [SHIFT 6195]; A 27632 1 true [SHIFT 10094];
   A 27634 1 true [REDUCE sym_exprArgs 3 0 0]; A 27636 1 true [SHIFT 6197];
   A 27638 1 true [SHIFT 305]; A 27640 1 true [SHIFT 12677]; A 27642 1 true [SHIFT 14780];
   A 27644 1 true [SHIFT 2370]; A 27646 1 true [SHIFT 2396]; A 27648 1 true [SHIFT 3274];
   A 27650 1 true [SHIFT 12736]; A 27652 1 true [SHIFT 12740]; A 27654 1 true [SHIFT 310];
   A 27656 1 true [SHIFT 12982]; A 27658 1 true [SHIFT 12743]; A 27660 1 true [SHIFT 11112];
   A 27662 1 true [SHIFT 10453]; A 27664 1 true [SHIFT 1341]; A 27666 1 true [SHIFT 10473];
   A 27668 1 true [SHIFT 12753]; A 27670 1 true [SHIFT 12757]; A 27672 1 true [SHIFT 12764];
   A 27674 1 true [SHIFT 13186]; A 27676 1 true [SHIFT 1772]; A 27678 1 true [SHIFT 315];
   A 27680 1 true [SHIFT 12655]; A 27682 1 true [SHIFT 12687]; A 27684 1 true [SHIFT 2098];
   A 27686 1 true [SHIFT 292]; A 27688 1 true [SHIFT 824]; A 27690 1 true [SHIFT 776];
   A 27692 1 true [SHIFT 3354]; A 27694 1 true [SHIFT 3762]; A 27696 1 true [SHIFT 6185];
   A 27698 1 true [SHIFT 1352]; A 27700 1 true [SHIFT 264]; A 27702 1 true [SHIFT 10475];
   A 27704 1 true [SHIFT 12312]; A 27706 1 true [SHIFT 3375];
   A 27708 2 true [REDUCE aux_sym_ppUsesBlock_repeat2 2 0 0; SHIFT_REPEAT 10921];
   A 27711 1 true [REDUCE aux_sym_ppUsesBlock_repeat2 2 0 0]; A 27713 1 true [SHIFT 320];
   A 27715 1 true [SHIFT 2042]; A 27717 1 true [SHIFT 3357]; A 27719 1 true [SHIFT 3572];
   A 27721 1 true [SHIFT 6288]; A 27723 1 true [SHIFT 3376]; A 27725 1 true [SHIFT 850];
   A 27727 1 true [SHIFT 1781]; A 27729 1 true [SHIFT 12100]; A 27731 1 true [SHIFT 12939];
   A 27733 1 true [REDUCE sym_recInitializerField 1 0 67]; A 27735 1 true [SHIFT 9884];
   A 27737 1 true [SHIFT 12621]; A 27739 1 true [SHIFT 1787]; A 27741 1 true [SHIFT 6172];
   A 27743 1 true [SHIFT 12947]; A 27745 1 true [SHIFT 6175]; A 27747 1 true [SHIFT 6177];
   A 27749 1 true [SHIFT 6208]; A 27751 1 true [SHIFT 1791]; A 27753 1 true [SHIFT 695];
   A 27755 1 true [SHIFT 2459]; A 27757 1 true [SHIFT 3888]; A 27759 1 true [SHIFT 10417];
   A 27761 1 true [SHIFT 365]; A 27763 1 true [SHIFT 2412]; A 27765 1 true [SHIFT 723];
   A 27767 1 true [SHIFT 767]; A 27769 1 true [SHIFT 325]; A 27771 1 true [SHIFT 1799];
   A 27773 1 true [SHIFT 207]; A 27775 1 true [SHIFT 1803]; A 27777 1 true [SHIFT 1809];
   A 27779 1 true [REDUCE sym_declArg 6 0 243]; A 27781 1 true [REDUCE sym_declArg 6 0 266];
   A 27783 1 true [SHIFT 3377]; A 27785 1 true [SHIFT 2422]; A 27787 1 true [SHIFT 6009];
   A 27789 1 true [SHIFT 3378]; A 27791 1 true [SHIFT 6015]; A 27793 1 true [SHIFT 713];
   A 27795 1 true [REDUCE sym_exceptionHandler 6 0 269]; A 27797 1 true [SHIFT 6302];
   A 27799 1 true [SHIFT 1818]; A 27801 1 true [SHIFT 6020]; A 27803 1 true [SHIFT 6022];
   A 27805 1 true [SHIFT 6312]; A 27807 1 true [SHIFT 14830];
   A 27809 2 true [REDUCE aux_sym_ppUsesBlockWithSemi_repeat1 2 0 0; SHIFT_REPEAT 11112];
   A 27812 1 true [REDUCE aux_sym_ppUsesBlockWithSemi_repeat1 2 0 0];
   A 27814 1 true [SHIFT 374]; A 27816 1 true [SHIFT 6026]; A 27818 1 true [SHIFT 2062];
   A 27820 1 true [SHIFT 3190]; A 27822 1 true [SHIFT 3379]; A 27824 1 true [SHIFT 330];
   A 27826 2 true [REDUCE aux_sym_declEnum_repeat1 2 0 0; SHIFT_REPEAT 12100];
   A 27829 1 true [SHIFT 6031]; A 27831 1 true [SHIFT 3380]; A 27833 1 true [SHIFT 6032];
   A 27835 1 true [SHIFT 6033]; A 27837 1 true [SHIFT 6034]; A 27839 1 true [SHIFT 6040];
   A 27841 1 true [SHIFT 10421]; A 27843 1 true [SHIFT 6044]; A 27845 1 true [SHIFT 3295];
   A 27847 1 true [SHIFT 3667]; A 27849 1 true [SHIFT 6045]
  ].

Definition ts_parse_actions_27851 : list (Z * list TSParseActionEntry) :=
  [
   A 27851 1 true [SHIFT 6046]; A 27853 1 true [SHIFT 3243]; A 27855 1 true [SHIFT 3606];
   A 27857 1 true [SHIFT 6342]; A 27859 1 true [SHIFT 6048]; A 27861 1 true [SHIFT 384];
   A 27863 1 true [SHIFT 6049]; A 27865 1 true [SHIFT 6050]; A 27867 1 true [SHIFT 6162];
   A 27869 1 true [SHIFT 2081]; A 27871 1 true [SHIFT 13452]; A 27873 1 true [SHIFT 6153];
   A 27875 1 true [SHIFT 6339]; A 27877 1 true [SHIFT 3382]; A 27879 1 true [SHIFT 10261];
   A 27881 1 true [SHIFT 3383]; A 27883 1 true [SHIFT 6013]; A 27885 1 true [SHIFT 6014];
   A 27887 1 true [SHIFT 694]; A 27889 1 true [SHIFT 1836]; A 27891 1 true [SHIFT 6142];
   A 27893 1 true [SHIFT 6143]; A 27895 1 true [SHIFT 6017]; A 27897 1 true [SHIFT 269];
   A 27899 1 true [SHIFT 6018]; A 27901 1 true [SHIFT 335]; A 27903 1 true [SHIFT 3364];
   A 27905 1 true [SHIFT 2995]; A 27907 1 true [SHIFT 391]; A 27909 1 true [SHIFT 10295];
   A 27911 1 true [SHIFT 3211]; A 27913 1 true [SHIFT 3556]; A 27915 1 true [SHIFT 10470];
   A 27917 1 true [SHIFT 3384]; A 27919 1 true [SHIFT 11394]; A 27921 1 true [SHIFT 14707];
   A 27923 1 true [SHIFT 3385]; A 27925 1 true [SHIFT 3044]; A 27927 1 true [SHIFT 1845];
   A 27929 1 true [SHIFT 12475]; A 27931 1 true [SHIFT 1851]; A 27933 1 true [SHIFT 1855];
   A 27935 1 true [SHIFT 13277]; A 27937 1 true [SHIFT 397]; A 27939 1 true [SHIFT 2986];
   A 27941 1 true [SHIFT 341]; A 27943 1 true [SHIFT 3176]; A 27945 1 true [SHIFT 10328];
   A 27947 1 true [SHIFT 3175]; A 27949 1 true [SHIFT 3213]; A 27951 1 true [SHIFT 3523];
   A 27953 1 true [REDUCE sym_declArg 7 0 292]; A 27955 1 true [SHIFT 3021];
   A 27957 1 true [SHIFT 3030]; A 27959 1 true [SHIFT 3005]; A 27961 1 true [SHIFT 1863];
   A 27963 1 true [SHIFT 213]; A 27965 1 true [SHIFT 1867]; A 27967 1 true [SHIFT 1873];
   A 27969 1 true [SHIFT 6184]; A 27971 1 true [SHIFT 403]; A 27973 1 true [SHIFT 6326];
   A 27975 1 true [SHIFT 6305]; A 27977 1 true [SHIFT 2958]; A 27979 1 true [SHIFT 1882];
   A 27981 1 true [SHIFT 409]; A 27983 1 true [SHIFT 6068]; A 27985 1 true [SHIFT 1320];
   A 27987 1 true [SHIFT 6139]; A 27989 1 true [SHIFT 348]; A 27991 1 true [SHIFT 237];
   A 27993 1 true [SHIFT 6154]; A 27995 1 true [SHIFT 6137]; A 27997 1 true [SHIFT 2356];
   A 27999 1 true [SHIFT 725]; A 28001 1 true [SHIFT 10422]; A 28003 1 true [SHIFT 9636];
   A 28005 1 true [SHIFT 6333]; A 28007 1 true [SHIFT 252]; A 28009 1 true [SHIFT 6320];
   A 28011 1 true [SHIFT 3315]; A 28013 1 true [SHIFT 3533]; A 28015 1 true [SHIFT 277];
   A 28017 1 true [SHIFT 354]; A 28019 1 true [SHIFT 2348]; A 28021 1 true [SHIFT 6309];
   A 28023 1 true [SHIFT 3058]; A 28025 1 true [REDUCE sym_declArg 5 0 132];
   A 28027 1 true [SHIFT 10323]; A 28029 1 true [SHIFT 6189]; A 28031 1 true [SHIFT 1991];
   A 28033 1 true [SHIFT 344]; A 28035 1 true [SHIFT 6205]; A 28037 1 true [SHIFT 11958];
   A 28039 1 true [SHIFT 12487]; A 28041 1 true [SHIFT 12925]; A 28043 1 true [SHIFT 6087];
   A 28045 1 true [SHIFT 6088]; A 28047 1 true [SHIFT 1902]; A 28049 1 true [SHIFT 10300];
   A 28051 1 true [SHIFT 1909]; A 28053 1 true [SHIFT 11596]; A 28055 1 true [SHIFT 6308];
   A 28057 1 true [SHIFT 1690]; A 28059 1 true [SHIFT 13223]; A 28061 1 true [SHIFT 2468];
   A 28063 1 true [SHIFT 10284]; A 28065 1 true [SHIFT 3027]; A 28067 1 true [SHIFT 1312];
   A 28069 1 true [SHIFT 6174]; A 28071 1 true [SHIFT 1692]; A 28073 1 true [SHIFT 1698];
   A 28075 1 true [SHIFT 359]; A 28077 1 true [SHIFT 218];
   A 28079 1 true [REDUCE sym_declArg 5 0 204]; A 28081 1 true [SHIFT 1705];
   A 28083 2 true [REDUCE aux_sym_rttiAttributes_repeat2 2 0 0; SHIFT_REPEAT 4020];
   A 28086 1 true [SHIFT 6330]; A 28088 1 true [SHIFT 6332]; A 28090 1 true [SHIFT 2962];
   A 28092 1 true [SHIFT 3289]; A 28094 1 true [SHIFT 2389]; A 28096 1 true [SHIFT 6091];
   A 28098 1 true [SHIFT 12772]; A 28100 1 true [SHIFT 3333]; A 28102 1 true [SHIFT 3611];
   A 28104 1 true [SHIFT 2354]; A 28106 1 true [SHIFT 6207]; A 28108 1 true [SHIFT 6147];
   A 28110 1 true [REDUCE sym_caseCaseTr 2 0 131]; A 28112 1 true [SHIFT 201];
   A 28114 1 true [SHIFT 12163]; A 28116 1 true [SHIFT 10441]; A 28118 1 true [SHIFT 1493];
   A 28120 1 true [SHIFT 9759]; A 28122 1 true [SHIFT 283]; A 28124 1 true [SHIFT 6096];
   A 28126 1 true [SHIFT 1500]; A 28128 1 true [SHIFT 367]; A 28130 1 true [SHIFT 6097];
   A 28132 1 true [SHIFT 13613]; A 28134 1 true [SHIFT 9649]; A 28136 1 true [SHIFT 10481];
   A 28138 1 true [SHIFT 6098]; A 28140 1 true [SHIFT 6099]; A 28142 1 true [SHIFT 680];
   A 28144 1 true [SHIFT 1506]; A 28146 1 true [SHIFT 6221]; A 28148 1 true [SHIFT 1508];
   A 28150 1 true [SHIFT 1514]; A 28152 1 true [SHIFT 224]; A 28154 1 true [SHIFT 380];
   A 28156 1 true [SHIFT 1521]; A 28158 1 true [SHIFT 2359]; A 28160 1 true [SHIFT 6232];
   A 28162 1 true [SHIFT 6103]; A 28164 1 true [SHIFT 2365]; A 28166 1 true [SHIFT 6233];
   A 28168 1 true [SHIFT 203]; A 28170 1 true [SHIFT 3054]; A 28172 1 true [SHIFT 3280];
   A 28174 1 true [SHIFT 6107]; A 28176 1 true [SHIFT 6295]; A 28178 1 true [SHIFT 6108];
   A 28180 1 true [SHIFT 199]; A 28182 1 true [SHIFT 3345]; A 28184 1 true [SHIFT 3673];
   A 28186 1 true [SHIFT 2989];
   A 28188 1 true [REDUCE sym__genericKeywordConstraintTyperef 1 0 3];
   A 28190 1 true [SHIFT 2926]; A 28192 1 true [SHIFT 6109]; A 28194 1 true [SHIFT 766];
   A 28196 1 true [SHIFT 192]; A 28198 1 true [SHIFT 291]; A 28200 1 true [SHIFT 6110];
   A 28202 1 true [SHIFT 12473]; A 28204 1 true [SHIFT 6111]; A 28206 1 true [SHIFT 12479];
   A 28208 1 true [SHIFT 6112]; A 28210 1 true [SHIFT 1726]; A 28212 1 true [SHIFT 780];
   A 28214 2 true [REDUCE aux_sym__exceptionHandlersTr_repeat1 2 0 0; SHIFT_REPEAT 10975];
   A 28217 1 true [SHIFT 2378]; A 28219 1 true [SHIFT 805]; A 28221 1 true [SHIFT 1733];
   A 28223 1 true [SHIFT 6073]; A 28225 1 true [SHIFT 12162]; A 28227 1 true [SHIFT 6074];
   A 28229 1 true [SHIFT 1019]; A 28231 1 true [SHIFT 2939]; A 28233 1 true [SHIFT 2423];
   A 28235 1 true [SHIFT 1739]; A 28237 1 true [SHIFT 270];
   A 28239 1 true [REDUCE sym_declArg 4 0 147]; A 28241 1 true [SHIFT 1741];
   A 28243 1 true [SHIFT 1747]; A 28245 1 true [SHIFT 243]; A 28247 1 true [SHIFT 230];
   A 28249 1 true [SHIFT 1753]; A 28251 1 true [SHIFT 6083]; A 28253 1 true [SHIFT 12535];
   A 28255 1 true [SHIFT 6084]; A 28257 1 true [SHIFT 259];
   A 28259 1 true [REDUCE sym_exceptionHandler 4 0 192]; A 28261 1 true [SHIFT 299];
   A 28263 1 true [SHIFT 9685]; A 28265 1 true [SHIFT 1326]; A 28267 1 true [SHIFT 3351];
   A 28269 1 true [SHIFT 3728]; A 28271 1 true [SHIFT 12582]; A 28273 1 true [SHIFT 6138];
   A 28275 1 true [SHIFT 438]; A 28277 1 true [SHIFT 12584]; A 28279 1 true [SHIFT 12607];
   A 28281 1 true [SHIFT 6318]; A 28283 1 true [SHIFT 12634]; A 28285 1 true [SHIFT 6319];
   A 28287 1 true [SHIFT 3209]; A 28289 1 true [REDUCE sym__visibility 1 0 0];
   A 28291 1 true [SHIFT 5545]; A 28293 1 true [SHIFT 15400]; A 28295 1 true [SHIFT 78];
   A 28297 1 true [SHIFT 210]; A 28299 1 true [SHIFT 11426]; A 28301 1 true [SHIFT 1339];
   A 28303 1 true [SHIFT 14235]; A 28305 1 true [SHIFT 14240]; A 28307 1 true [SHIFT 1426];
   A 28309 1 true [SHIFT 6592];
   A 28311 1 true [REDUCE aux_sym_ppUsesBlockWithSemi_repeat1 2 0 17];
   A 28313 1 true [SHIFT 14067]; A 28315 1 true [SHIFT 10423]; A 28317 1 true [SHIFT 14418];
   A 28319 1 true [SHIFT 14858]; A 28321 1 true [SHIFT 11935]; A 28323 1 true [SHIFT 12009];
   A 28325 1 true [SHIFT 11849]; A 28327 1 true [SHIFT 5232]; A 28329 1 true [SHIFT 5928];
   A 28331 1 true [SHIFT 3674]; A 28333 1 true [SHIFT 2901]; A 28335 1 true [SHIFT 14069];
   A 28337 1 true [SHIFT 6807]; A 28339 1 true [REDUCE sym_genericArg 2 0 46];
   A 28341 1 true [SHIFT 15886]; A 28343 1 true [SHIFT 14540]; A 28345 1 true [SHIFT 5723];
   A 28347 1 true [SHIFT 14554]; A 28349 1 true [SHIFT 6417]; A 28351 1 true [SHIFT 12860];
   A 28353 1 true [SHIFT 74]; A 28355 1 true [SHIFT 189];
   A 28357 1 true [REDUCE sym_genericArg 5 0 225]; A 28359 1 true [SHIFT 6549];
   A 28361 1 true [SHIFT 13852]; A 28363 1 true [SHIFT 6566]; A 28365 1 true [SHIFT 14641];
   A 28367 1 true [SHIFT 14642]; A 28369 1 true [SHIFT 14647]; A 28371 1 true [SHIFT 3343];
   A 28373 1 true [SHIFT 10461]; A 28375 1 true [SHIFT 6524]; A 28377 1 true [SHIFT 1379];
   A 28379 1 true [SHIFT 5308]; A 28381 1 true [SHIFT 10424]; A 28383 1 true [SHIFT 13120];
   A 28385 1 true [SHIFT 13978]; A 28387 1 true [SHIFT 5932]; A 28389 1 true [SHIFT 6002];
   A 28391 1 true [SHIFT 1299]; A 28393 1 true [SHIFT 10465]; A 28395 1 true [SHIFT 1300];
   A 28397 1 true [SHIFT 4083]; A 28399 1 true [SHIFT 10589];
   A 28401 2 true [REDUCE aux_sym_genericArg_repeat1 2 0 0; SHIFT_REPEAT 14631];
   A 28404 1 true [SHIFT 6768]; A 28406 1 true [SHIFT 9887]; A 28408 1 true [SHIFT 11395];
   A 28410 1 true [SHIFT 13043]; A 28412 1 true [SHIFT 14872]; A 28414 1 true [SHIFT 86];
   A 28416 1 true [SHIFT 215]; A 28418 1 true [SHIFT 15894]; A 28420 1 true [SHIFT 6529];
   A 28422 1 true [SHIFT 3590]; A 28424 1 true [SHIFT 2867]; A 28426 1 true [SHIFT 6830];
   A 28428 1 true [SHIFT 6429]; A 28430 1 true [SHIFT 12041]; A 28432 1 true [SHIFT 6599];
   A 28434 1 true [SHIFT 6431]; A 28436 1 true [SHIFT 6601]; A 28438 1 true [SHIFT 6605];
   A 28440 1 true [SHIFT 13746]; A 28442 1 true [SHIFT 5983]; A 28444 1 true [SHIFT 11760];
   A 28446 1 true [SHIFT 6610]; A 28448 1 true [SHIFT 10404]; A 28450 1 true [SHIFT 13272];
   A 28452 1 true [SHIFT 5660]; A 28454 1 true [SHIFT 12608]; A 28456 1 true [SHIFT 14022];
   A 28458 1 true [SHIFT 6468]; A 28460 1 true [SHIFT 15058]; A 28462 1 true [SHIFT 6834];
   A 28464 1 true [SHIFT 15067]; A 28466 1 true [SHIFT 15927]; A 28468 1 true [SHIFT 11074];
   A 28470 1 true [SHIFT 11445]; A 28472 1 true [SHIFT 13196]; A 28474 1 true [SHIFT 61];
   A 28476 1 true [SHIFT 231]; A 28478 1 true [SHIFT 13829]; A 28480 1 true [SHIFT 11560];
   A 28482 1 true [SHIFT 6506]; A 28484 1 true [SHIFT 15112]; A 28486 1 true [SHIFT 15113];
   A 28488 1 true [SHIFT 15118]; A 28490 1 true [SHIFT 9710];
   A 28492 1 true [REDUCE sym_declVariant 6 0 291];
   A 28494 1 true [REDUCE aux_sym_declLabels_repeat1 2 0 0]; A 28496 1 true [SHIFT 3359];
   A 28498 1 true [SHIFT 12622]; A 28500 1 true [REDUCE sym_declVariantClause 3 0 0];
   A 28502 1 true [SHIFT 14754]; A 28504 1 true [SHIFT 12158]; A 28506 1 true [SHIFT 6494];
   A 28508 1 true [SHIFT 13284]; A 28510 1 true [SHIFT 6500]; A 28512 1 true [SHIFT 5887];
   A 28514 1 true [SHIFT 6349]; A 28516 1 true [SHIFT 5934]; A 28518 1 true [SHIFT 14222];
   A 28520 1 true [SHIFT 6507]; A 28522 1 true [SHIFT 13621]; A 28524 1 true [SHIFT 13669];
   A 28526 1 true [SHIFT 3547]; A 28528 1 true [SHIFT 2883]; A 28530 1 true [SHIFT 13094];
   A 28532 1 true [SHIFT 15227]; A 28534 1 true [SHIFT 119]; A 28536 1 true [SHIFT 221];
   A 28538 1 true [REDUCE sym_declVariantClause 7 0 0]; A 28540 1 true [SHIFT 15520];
   A 28542 1 true [REDUCE sym_genericArgs 2 0 0]; A 28544 1 true [SHIFT 14873];
   A 28546 1 true [SHIFT 1303]; A 28548 1 true [SHIFT 6435]; A 28550 1 true [SHIFT 9405];
   A 28552 1 true [REDUCE sym_declVariant 4 0 229]; A 28554 1 true [SHIFT 6508];
   A 28556 1 true [SHIFT 9720]; A 28558 1 true [SHIFT 6514]; A 28560 1 true [SHIFT 6515];
   A 28562 1 true [SHIFT 9446]; A 28564 1 true [SHIFT 10451]; A 28566 1 true [SHIFT 10452];
   A 28568 1 true [SHIFT 1319]; A 28570 1 true [SHIFT 12358]; A 28572 1 true [SHIFT 13698];
   A 28574 1 true [SHIFT 12560]; A 28576 1 true [SHIFT 12585]; A 28578 1 true [SHIFT 15356];
   A 28580 1 true [SHIFT 6646]; A 28582 1 true [SHIFT 15366]; A 28584 1 true [SHIFT 6347];
   A 28586 1 true [SHIFT 6611]; A 28588 1 true [SHIFT 6590]; A 28590 1 true [SHIFT 12918];
   A 28592 1 true [SHIFT 15440]; A 28594 1 true [REDUCE sym_declVariantClause 4 0 0];
   A 28596 1 true [SHIFT 15519]; A 28598 1 true [SHIFT 6525]; A 28600 1 true [SHIFT 15407];
   A 28602 1 true [SHIFT 15409]; A 28604 1 true [SHIFT 15421]; A 28606 1 true [SHIFT 1286];
   A 28608 1 true [SHIFT 6379]; A 28610 1 true [SHIFT 10406]; A 28612 1 true [SHIFT 4247];
   A 28614 1 true [SHIFT 6459]; A 28616 1 true [REDUCE sym_declVariantClause 8 0 0];
   A 28618 1 true [SHIFT 14312]; A 28620 1 true [SHIFT 6567]; A 28622 1 true [SHIFT 1324];
   A 28624 1 true [SHIFT 15577]; A 28626 1 true [SHIFT 1278]; A 28628 1 true [SHIFT 1296];
   A 28630 1 true [SHIFT 60]; A 28632 1 true [SHIFT 227]; A 28634 1 true [SHIFT 6577];
   A 28636 1 true [SHIFT 1210]; A 28638 1 true [SHIFT 14036]; A 28640 1 true [SHIFT 6805];
   A 28642 1 true [SHIFT 1307]; A 28644 1 true [SHIFT 15784]; A 28646 1 true [SHIFT 14082];
   A 28648 1 true [SHIFT 15794]; A 28650 1 true [SHIFT 6484]; A 28652 1 true [SHIFT 15822];
   A 28654 1 true [SHIFT 15823]; A 28656 1 true [SHIFT 15827]; A 28658 1 true [SHIFT 3186];
   A 28660 1 true [SHIFT 4281];
   A 28662 1 true [REDUCE aux_sym__procAttributeNoExt_repeat1 2 0 164];
   A 28664 1 true [SHIFT 4738]; A 28666 1 true [SHIFT 4121]; A 28668 1 true [SHIFT 63];
   A 28670 1 true [SHIFT 234]; A 28672 1 true [SHIFT 14052]; A 28674 1 true [SHIFT 1232];
   A 28676 1 true [SHIFT 11401]; A 28678 1 true [SHIFT 6436]; A 28680 1 true [SHIFT 11402];
   A 28682 1 true [SHIFT 6437]; A 28684 1 true [SHIFT 15091]; A 28686 1 true [SHIFT 14195];
   A 28688 1 true [SHIFT 13714]; A 28690 1 true [SHIFT 6380]; A 28692 1 true [SHIFT 15446];
   A 28694 1 true [SHIFT 15568]; A 28696 1 true [SHIFT 14203]; A 28698 1 true [SHIFT 6448];
   A 28700 1 true [SHIFT 9723]; A 28702 1 true [SHIFT 13917]; A 28704 1 true [SHIFT 14242];
   A 28706 1 true [SHIFT 3521]; A 28708 1 true [SHIFT 2881]; A 28710 1 true [SHIFT 66];
   A 28712 1 true [SHIFT 240]; A 28714 1 true [SHIFT 5923]; A 28716 1 true [SHIFT 6411];
   A 28718 1 true [SHIFT 14803]; A 28720 1 true [SHIFT 10335]; A 28722 1 true [SHIFT 15776];
   A 28724 1 true [SHIFT 10333]; A 28726 1 true [SHIFT 3360]; A 28728 1 true [SHIFT 15346];
   A 28730 1 true [SHIFT 12176]; A 28732 1 true [SHIFT 15713]; A 28734 1 true [SHIFT 15714];
   A 28736 1 true [SHIFT 14094]; A 28738 1 true [SHIFT 1334]; A 28740 1 true [SHIFT 11940];
   A 28742 1 true [SHIFT 69]; A 28744 1 true [SHIFT 249]; A 28746 1 true [SHIFT 13113];
   A 28748 1 true [SHIFT 11943]; A 28750 1 true [SHIFT 4325]; A 28752 1 true [SHIFT 1073];
   A 28754 1 true [SHIFT 5888]; A 28756 1 true [SHIFT 12745]; A 28758 1 true [SHIFT 15618];
   A 28760 1 true [SHIFT 15855]; A 28762 1 true [SHIFT 15898]; A 28764 1 true [SHIFT 14095];
   A 28766 1 true [REDUCE sym_declVariantClause 5 0 0]; A 28768 1 true [SHIFT 14864];
   A 28770 1 true [SHIFT 1091]; A 28772 1 true [SHIFT 73]; A 28774 1 true [SHIFT 256];
   A 28776 1 true [SHIFT 15351]; A 28778 1 true [SHIFT 14096]; A 28780 1 true [SHIFT 3348];
   A 28782 1 true [REDUCE aux_sym__defProcBody_repeat1 2 0 51]; A 28784 1 true [SHIFT 14098];
   A 28786 1 true [SHIFT 6649]; A 28788 1 true [SHIFT 5992]; A 28790 1 true [SHIFT 14921];
   A 28792 1 true [SHIFT 1252]; A 28794 1 true [SHIFT 14972]; A 28796 1 true [SHIFT 14976];
   A 28798 1 true [SHIFT 12777]; A 28800 1 true [SHIFT 1256]; A 28802 1 true [SHIFT 77];
   A 28804 1 true [SHIFT 261]; A 28806 1 true [SHIFT 12928]; A 28808 1 true [SHIFT 12216];
   A 28810 1 true [REDUCE sym_declVariantField 4 0 147]; A 28812 1 true [SHIFT 5862];
   A 28814 1 true [SHIFT 6361]; A 28816 1 true [SHIFT 6497]; A 28818 1 true [SHIFT 15733];
   A 28820 1 true [SHIFT 15765]; A 28822 1 true [SHIFT 15769];
   A 28824 1 true [REDUCE sym_declVariantClause 6 0 0]; A 28826 1 true [SHIFT 6419];
   A 28828 1 true [SHIFT 13380]; A 28830 1 true [SHIFT 6425]; A 28832 1 true [SHIFT 10250];
   A 28834 1 true [SHIFT 10321]; A 28836 1 true [SHIFT 80]; A 28838 1 true [SHIFT 266];
   A 28840 1 true [SHIFT 5841]; A 28842 1 true [SHIFT 5017]; A 28844 1 true [SHIFT 12976];
   A 28846 1 true [SHIFT 9817]; A 28848 1 true [SHIFT 14105]; A 28850 1 true [SHIFT 14885];
   A 28852 1 true [SHIFT 13367]; A 28854 1 true [SHIFT 14522]; A 28856 1 true [SHIFT 14597];
   A 28858 1 true [SHIFT 14599]; A 28860 1 true [REDUCE sym_declVariantField 5 0 204];
   A 28862 1 true [SHIFT 3512]; A 28864 1 true [SHIFT 2890]; A 28866 1 true [SHIFT 82];
   A 28868 1 true [SHIFT 274]; A 28870 1 true [SHIFT 1264]; A 28872 1 true [SHIFT 3381];
   A 28874 1 true [SHIFT 6366]; A 28876 1 true [SHIFT 12199]; A 28878 1 true [SHIFT 11559];
   A 28880 1 true [SHIFT 14991]; A 28882 1 true [SHIFT 13171]; A 28884 1 true [SHIFT 15025];
   A 28886 1 true [SHIFT 15029]; A 28888 1 true [SHIFT 11960]; A 28890 1 true [SHIFT 3557];
   A 28892 1 true [SHIFT 2877]; A 28894 1 true [SHIFT 10889]; A 28896 1 true [SHIFT 12588];
   A 28898 1 true [SHIFT 85]; A 28900 1 true [SHIFT 280]; A 28902 1 true [SHIFT 6415];
   A 28904 1 true [SHIFT 13101]; A 28906 1 true [SHIFT 15430]; A 28908 1 true [SHIFT 15431];
   A 28910 1 true [SHIFT 5817]; A 28912 1 true [SHIFT 5818]; A 28914 1 true [SHIFT 14223];
   A 28916 1 true [SHIFT 11166]; A 28918 1 true [SHIFT 6398]; A 28920 1 true [SHIFT 88];
   A 28922 1 true [SHIFT 288]; A 28924 1 true [SHIFT 6427]; A 28926 1 true [SHIFT 12708];
   A 28928 1 true [SHIFT 12709]; A 28930 1 true [SHIFT 6691]; A 28932 1 true [SHIFT 15675];
   A 28934 1 true [SHIFT 15718]; A 28936 1 true [SHIFT 15721];
   A 28938 2 true [REDUCE aux_sym_moduleName_repeat1 2 0 0; SHIFT_REPEAT 13230];
   A 28941 1 true [SHIFT 12019]; A 28943 1 true [SHIFT 6960]; A 28945 1 true [SHIFT 90];
   A 28947 1 true [SHIFT 296]; A 28949 1 true [SHIFT 5823]; A 28951 1 true [SHIFT 14129];
   A 28953 1 true [SHIFT 14153]; A 28955 1 true [SHIFT 14154]; A 28957 1 true [SHIFT 12090];
   A 28959 1 true [SHIFT 1268]; A 28961 1 true [SHIFT 11597]; A 28963 1 true [SHIFT 92];
   A 28965 1 true [SHIFT 302]; A 28967 1 true [SHIFT 5833]; A 28969 1 true [SHIFT 5838];
   A 28971 1 true [SHIFT 5839]; A 28973 1 true [SHIFT 5840]; A 28975 1 true [SHIFT 1362];
   A 28977 1 true [SHIFT 14352]; A 28979 1 true [SHIFT 14367]; A 28981 1 true [SHIFT 14372];
   A 28983 1 true [SHIFT 6410]; A 28985 1 true [SHIFT 94]; A 28987 1 true [SHIFT 307];
   A 28989 1 true [SHIFT 5985]; A 28991 1 true [SHIFT 12727]; A 28993 1 true [SHIFT 3178];
   A 28995 1 true [SHIFT 1269]; A 28997 1 true [SHIFT 5845]; A 28999 1 true [SHIFT 11530];
   A 29001 1 true [SHIFT 13224]; A 29003 1 true [SHIFT 14571]; A 29005 1 true [SHIFT 12468];
   A 29007 1 true [SHIFT 14585]; A 29009 1 true [SHIFT 14590]; A 29011 1 true [SHIFT 3181];
   A 29013 1 true [SHIFT 3191]; A 29015 1 true [SHIFT 13923]; A 29017 1 true [SHIFT 96];
   A 29019 1 true [SHIFT 312]; A 29021 1 true [SHIFT 11529]; A 29023 1 true [SHIFT 1270];
   A 29025 1 true [SHIFT 5858]; A 29027 1 true [SHIFT 5859]; A 29029 1 true [SHIFT 14113];
   A 29031 1 true [SHIFT 70]; A 29033 1 true [SHIFT 186]; A 29035 1 true [SHIFT 98];
   A 29037 1 true [SHIFT 317]; A 29039 1 true [SHIFT 4058]; A 29041 1 true [SHIFT 5866];
   A 29043 1 true [SHIFT 11637]; A 29045 1 true [SHIFT 11677]; A 29047 1 true [SHIFT 3192];
   A 29049 1 true [SHIFT 14823]; A 29051 1 true [SHIFT 100]; A 29053 1 true [SHIFT 322];
   A 29055 1 true [SHIFT 15861]; A 29057 1 true [SHIFT 14114]; A 29059 1 true [SHIFT 5869];
   A 29061 1 true [SHIFT 13886]; A 29063 1 true [SHIFT 5871]; A 29065 1 true [SHIFT 5875];
   A 29067 1 true [SHIFT 102]; A 29069 1 true [SHIFT 327]; A 29071 1 true [SHIFT 13980];
   A 29073 1 true [SHIFT 3581]; A 29075 1 true [SHIFT 2920]; A 29077 1 true [SHIFT 15360];
   A 29079 1 true [SHIFT 13938]; A 29081 1 true [SHIFT 15601]; A 29083 1 true [SHIFT 6526];
   A 29085 1 true [SHIFT 104]; A 29087 1 true [SHIFT 332]; A 29089 1 true [SHIFT 5824];
   A 29091 1 true [SHIFT 5825]; A 29093 1 true [SHIFT 6961]; A 29095 1 true [SHIFT 6699];
   A 29097 1 true [SHIFT 15647]; A 29099 1 true [SHIFT 12021]; A 29101 1 true [SHIFT 106];
   A 29103 1 true [SHIFT 338]; A 29105 1 true [SHIFT 12579]; A 29107 1 true [SHIFT 12063];
   A 29109 1 true [SHIFT 3195]; A 29111 1 true [SHIFT 6530]; A 29113 1 true [SHIFT 5899];
   A 29115 1 true [SHIFT 12026]; A 29117 1 true [SHIFT 5900]; A 29119 1 true [SHIFT 122];
   A 29121 1 true [SHIFT 196]; A 29123 1 true [SHIFT 12055]; A 29125 1 true [SHIFT 108];
   A 29127 1 true [SHIFT 345]; A 29129 1 true [SHIFT 5865]; A 29131 1 true [SHIFT 6454];
   A 29133 1 true [SHIFT 5872]; A 29135 1 true [SHIFT 14115]; A 29137 1 true [SHIFT 1370];
   A 29139 1 true [SHIFT 15311]; A 29141 1 true [SHIFT 1333]; A 29143 1 true [SHIFT 110];
   A 29145 1 true [SHIFT 351]; A 29147 1 true [SHIFT 14217]; A 29149 1 true [SHIFT 14221];
   A 29151 1 true [SHIFT 1291]; A 29153 1 true [SHIFT 1292]; A 29155 1 true [SHIFT 10445];
   A 29157 1 true [SHIFT 9498]; A 29159 1 true [SHIFT 4122]; A 29161 1 true [SHIFT 1349];
   A 29163 1 true [SHIFT 6531]; A 29165 1 true [SHIFT 112]; A 29167 1 true [SHIFT 356];
   A 29169 1 true [SHIFT 1063]; A 29171 1 true [SHIFT 5913]; A 29173 1 true [SHIFT 6386];
   A 29175 1 true [SHIFT 13384]; A 29177 1 true [SHIFT 5588]; A 29179 1 true [SHIFT 14849];
   A 29181 1 true [SHIFT 14387]; A 29183 1 true [SHIFT 13514]; A 29185 1 true [SHIFT 10446];
   A 29187 1 true [SHIFT 11604]; A 29189 1 true [SHIFT 14103]; A 29191 1 true [SHIFT 6498];
   A 29193 1 true [SHIFT 13407]; A 29195 1 true [SHIFT 10680];
   A 29197 1 true [REDUCE sym_exceptionHandlerTr 6 0 269]; A 29199 1 true [SHIFT 3742];
   A 29201 1 true [SHIFT 2870]; A 29203 1 true [SHIFT 13000]; A 29205 1 true [SHIFT 15320];
   A 29207 1 true [SHIFT 14495]; A 29209 1 true [SHIFT 14503]; A 29211 1 true [SHIFT 14509];
   A 29213 1 true [SHIFT 14517]; A 29215 1 true [SHIFT 6703]; A 29217 1 true [SHIFT 1289];
   A 29219 1 true [SHIFT 11231]; A 29221 1 true [SHIFT 14118]; A 29223 1 true [SHIFT 6731];
   A 29225 1 true [SHIFT 1297]; A 29227 1 true [SHIFT 14426]; A 29229 1 true [SHIFT 14524];
   A 29231 1 true [REDUCE sym_declEnumValue 2 0 123]; A 29233 1 true [SHIFT 14609];
   A 29235 1 true [SHIFT 14437]; A 29237 1 true [REDUCE sym_statementsTr 1 0 0];
   A 29239 1 true [SHIFT 6455]; A 29241 1 true [SHIFT 13808]; A 29243 1 true [SHIFT 1209];
   A 29245 1 true [SHIFT 6348]; A 29247 1 true [SHIFT 13942]; A 29249 1 true [SHIFT 10712];
   A 29251 1 true [SHIFT 1358]; A 29253 1 true [SHIFT 13619]; A 29255 1 true [SHIFT 12077];
   A 29257 1 true [SHIFT 9394]; A 29259 1 true [SHIFT 14709]; A 29261 1 true [SHIFT 14728];
   A 29263 1 true [SHIFT 14644]; A 29265 1 true [SHIFT 14650]; A 29267 1 true [SHIFT 14674];
   A 29269 1 true [SHIFT 6823]; A 29271 1 true [SHIFT 10367]; A 29273 1 true [SHIFT 14744];
   A 29275 1 true [SHIFT 12108]; A 29277 1 true [SHIFT 14158]; A 29279 1 true [SHIFT 6539];
   A 29281 1 true [SHIFT 5576]; A 29283 1 true [SHIFT 1332]; A 29285 1 true [SHIFT 14756];
   A 29287 1 true [SHIFT 14868]; A 29289 1 true [SHIFT 14772]; A 29291 1 true [SHIFT 12997];
   A 29293 1 true [SHIFT 14792]; A 29295 1 true [SHIFT 13516]; A 29297 1 true [SHIFT 13517];
   A 29299 1 true [SHIFT 13026]; A 29301 1 true [SHIFT 13061]; A 29303 1 true [SHIFT 6216];
   A 29305 1 true [SHIFT 12999]; A 29307 1 true [SHIFT 15562]; A 29309 1 true [SHIFT 15567];
   A 29311 1 true [SHIFT 6228]; A 29313 1 true [SHIFT 13946]; A 29315 1 true [SHIFT 3208];
   A 29317 1 true [SHIFT 12977]; A 29319 1 true [SHIFT 4747];
   A 29321 1 true [REDUCE aux_sym_ppUsesBlockWithSemi_repeat1 3 0 17];
   A 29323 1 true [SHIFT 6414]; A 29325 1 true [SHIFT 3215]; A 29327 1 true [SHIFT 3216];
   A 29329 1 true [SHIFT 3217]; A 29331 1 true [SHIFT 3218]; A 29333 1 true [SHIFT 12823];
   A 29335 1 true [SHIFT 115]; A 29337 1 true [SHIFT 362]; A 29339 1 true [SHIFT 3221];
   A 29341 1 true [SHIFT 6362]; A 29343 1 true [SHIFT 12306]; A 29345 1 true [SHIFT 3226];
   A 29347 1 true [SHIFT 3227]; A 29349 1 true [SHIFT 6383]; A 29351 1 true [SHIFT 3231];
   A 29353 1 true [SHIFT 14008]; A 29355 1 true [SHIFT 14010]; A 29357 1 true [SHIFT 6499];
   A 29359 1 true [SHIFT 15983]; A 29361 1 true [SHIFT 15989]; A 29363 1 true [SHIFT 6571];
   A 29365 1 true [SHIFT 6501]; A 29367 1 true [SHIFT 13390];
   A 29369 1 true [REDUCE aux_sym_defProc_repeat1 2 0 48]; A 29371 1 true [SHIFT 12867];
   A 29373 1 true [SHIFT 12462]; A 29375 1 true [SHIFT 5929]; A 29377 1 true [SHIFT 5930];
   A 29379 1 true [SHIFT 13646]; A 29381 1 true [SHIFT 3239]; A 29383 1 true [SHIFT 3240];
   A 29385 1 true [SHIFT 13713]; A 29387 1 true [SHIFT 6241]; A 29389 1 true [SHIFT 6242];
   A 29391 1 true [SHIFT 4811]; A 29393 1 true [SHIFT 14879]; A 29395 1 true [SHIFT 13146];
   A 29397 1 true [SHIFT 6389]; A 29399 1 true [SHIFT 3245]; A 29401 1 true [SHIFT 3246];
   A 29403 1 true [SHIFT 3247]; A 29405 1 true [SHIFT 3248]; A 29407 1 true [SHIFT 118];
   A 29409 1 true [SHIFT 371]; A 29411 1 true [SHIFT 6626]; A 29413 1 true [SHIFT 1293];
   A 29415 1 true [SHIFT 3256]; A 29417 1 true [SHIFT 3257]; A 29419 1 true [SHIFT 15185];
   A 29421 1 true [SHIFT 14039]; A 29423 1 true [SHIFT 6407]; A 29425 1 true [SHIFT 3267];
   A 29427 1 true [SHIFT 3268]; A 29429 1 true [SHIFT 6675]; A 29431 1 true [SHIFT 11616];
   A 29433 1 true [SHIFT 14049]; A 29435 1 true [SHIFT 67]; A 29437 1 true [SHIFT 204];
   A 29439 1 true [SHIFT 4846]; A 29441 1 true [SHIFT 14123]; A 29443 1 true [SHIFT 3276];
   A 29445 1 true [SHIFT 3277]; A 29447 1 true [SHIFT 3278]; A 29449 1 true [SHIFT 3279];
   A 29451 1 true [SHIFT 1372]; A 29453 1 true [SHIFT 4327]
  ].

Definition ts_parse_actions_29455 : list (Z * list TSParseActionEntry) :=
  [
   A 29455 1 true [SHIFT 121]; A 29457 1 true [SHIFT 381]; A 29459 1 true [SHIFT 6246];
   A 29461 1 true [SHIFT 3285]; A 29463 1 true [SHIFT 3286]; A 29465 1 true [SHIFT 3250];
   A 29467 1 true [SHIFT 14125]; A 29469 1 true [SHIFT 10415]; A 29471 1 true [SHIFT 3291];
   A 29473 1 true [SHIFT 3292]; A 29475 1 true [REDUCE sym_genericArg 3 0 118];
   A 29477 1 true [SHIFT 6255]; A 29479 1 true [SHIFT 15161]; A 29481 1 true [SHIFT 4881];
   A 29483 1 true [SHIFT 6256]; A 29485 1 true [SHIFT 3297]; A 29487 1 true [SHIFT 3298];
   A 29489 1 true [SHIFT 3387]; A 29491 1 true [SHIFT 3299];
   A 29493 1 true [REDUCE sym_genericArg 4 0 173]; A 29495 1 true [SHIFT 124];
   A 29497 1 true [SHIFT 388]; A 29499 1 true [SHIFT 6259]; A 29501 1 true [SHIFT 6261];
   A 29503 1 true [SHIFT 3305]; A 29505 1 true [SHIFT 3306]; A 29507 1 true [SHIFT 3236];
   A 29509 1 true [SHIFT 10282]; A 29511 1 true [SHIFT 3313]; A 29513 1 true [SHIFT 3314];
   A 29515 1 true [SHIFT 10283]; A 29517 1 true [SHIFT 1373]; A 29519 1 true [SHIFT 4910];
   A 29521 1 true [SHIFT 13965]; A 29523 1 true [SHIFT 6265]; A 29525 1 true [SHIFT 3316];
   A 29527 1 true [SHIFT 3317]; A 29529 1 true [SHIFT 3318]; A 29531 1 true [SHIFT 3319];
   A 29533 1 true [SHIFT 3228]; A 29535 1 true [SHIFT 126]; A 29537 1 true [SHIFT 394];
   A 29539 1 true [SHIFT 3323]; A 29541 1 true [SHIFT 3324]; A 29543 1 true [SHIFT 12170];
   A 29545 1 true [SHIFT 13071]; A 29547 1 true [SHIFT 5658]; A 29549 1 true [SHIFT 13447];
   A 29551 1 true [SHIFT 6826]; A 29553 1 true [SHIFT 3331]; A 29555 1 true [SHIFT 3332];
   A 29557 1 true [SHIFT 1375]; A 29559 1 true [SHIFT 15968]; A 29561 1 true [SHIFT 1376];
   A 29563 1 true [SHIFT 4947]; A 29565 1 true [SHIFT 14002]; A 29567 1 true [SHIFT 3334];
   A 29569 1 true [SHIFT 3335]; A 29571 1 true [SHIFT 3336]; A 29573 1 true [SHIFT 3337];
   A 29575 1 true [SHIFT 6972]; A 29577 1 true [SHIFT 4562]; A 29579 1 true [SHIFT 128];
   A 29581 1 true [SHIFT 400]; A 29583 1 true [SHIFT 3339]; A 29585 1 true [SHIFT 3340];
   A 29587 1 true [SHIFT 6270]; A 29589 1 true [SHIFT 14178]; A 29591 1 true [SHIFT 6272];
   A 29593 1 true [SHIFT 15969]; A 29595 1 true [SHIFT 13267]; A 29597 1 true [SHIFT 6274];
   A 29599 1 true [SHIFT 4985]; A 29601 1 true [SHIFT 14180]; A 29603 1 true [SHIFT 4504];
   A 29605 1 true [SHIFT 130]; A 29607 1 true [SHIFT 406]; A 29609 1 true [SHIFT 6375];
   A 29611 1 true [SHIFT 5005]; A 29613 1 true [SHIFT 12116]; A 29615 1 true [SHIFT 14056];
   A 29617 1 true [SHIFT 14057]; A 29619 1 true [SHIFT 5020]; A 29621 1 true [SHIFT 6276];
   A 29623 1 true [SHIFT 5034]; A 29625 1 true [SHIFT 6277]; A 29627 1 true [SHIFT 5048];
   A 29629 1 true [REDUCE sym_declLabel 1 0 6]; A 29631 1 true [SHIFT 6278];
   A 29633 1 true [SHIFT 5061]; A 29635 1 true [SHIFT 6607]; A 29637 1 true [SHIFT 6450];
   A 29639 1 true [SHIFT 10373]; A 29641 1 true [SHIFT 12191]; A 29643 1 true [SHIFT 5077];
   A 29645 1 true [SHIFT 1338]; A 29647 1 true [SHIFT 5880]; A 29649 1 true [SHIFT 15704];
   A 29651 1 true [SHIFT 15720]; A 29653 1 true [SHIFT 5090]; A 29655 1 true [SHIFT 13717];
   A 29657 1 true [SHIFT 5102]; A 29659 1 true [SHIFT 1343]; A 29661 1 true [SHIFT 5112];
   A 29663 1 true [SHIFT 6452]; A 29665 1 true [SHIFT 12220]; A 29667 1 true [SHIFT 5122];
   A 29669 1 true [SHIFT 14186]; A 29671 1 true [SHIFT 5133]; A 29673 1 true [SHIFT 4876];
   A 29675 1 true [SHIFT 1360]; A 29677 1 true [SHIFT 6222]; A 29679 1 true [SHIFT 5144];
   A 29681 1 true [SHIFT 6226]; A 29683 1 true [SHIFT 5156]; A 29685 1 true [SHIFT 10982];
   A 29687 1 true [SHIFT 5166]; A 29689 1 true [SHIFT 12344]; A 29691 1 true [SHIFT 14188];
   A 29693 1 true [SHIFT 5177]; A 29695 1 true [SHIFT 3300]; A 29697 1 true [SHIFT 6365];
   A 29699 1 true [SHIFT 5186]; A 29701 1 true [SHIFT 1350]; A 29703 1 true [SHIFT 5195];
   A 29705 1 true [SHIFT 6373]; A 29707 1 true [SHIFT 5204]; A 29709 1 true [SHIFT 5979];
   A 29711 1 true [SHIFT 12424]; A 29713 1 true [SHIFT 5215]; A 29715 1 true [SHIFT 6378];
   A 29717 1 true [SHIFT 12427]; A 29719 1 true [SHIFT 5224]; A 29721 1 true [SHIFT 6391];
   A 29723 1 true [SHIFT 6625]; A 29725 1 true [SHIFT 5233]; A 29727 1 true [SHIFT 6873];
   A 29729 1 true [SHIFT 15846]; A 29731 1 true [SHIFT 15853]; A 29733 1 true [SHIFT 5966];
   A 29735 1 true [SHIFT 15858]; A 29737 1 true [SHIFT 15909];
   A 29739 1 true [REDUCE sym_recInitializerField 3 0 182]; A 29741 1 true [SHIFT 1316];
   A 29743 1 true [SHIFT 6445]; A 29745 1 true [SHIFT 1346]; A 29747 1 true [SHIFT 13691];
   A 29749 1 true [SHIFT 5311]; A 29751 1 true [REDUCE sym_genericArgs 1 0 0];
   A 29753 1 true [SHIFT 6472]; A 29755 1 true [SHIFT 13701]; A 29757 1 true [SHIFT 11636];
   A 29759 1 true [SHIFT 11276]; A 29761 1 true [SHIFT 5882]; A 29763 1 true [SHIFT 12193];
   A 29765 1 true [SHIFT 10418]; A 29767 1 true [REDUCE sym_exceptionHandlerTr 4 0 192];
   A 29769 1 true [SHIFT 6559]; A 29771 1 true [SHIFT 5334]; A 29773 1 true [SHIFT 6446];
   A 29775 1 true [SHIFT 6235]; A 29777 1 true [SHIFT 1145]; A 29779 1 true [SHIFT 4878];
   A 29781 1 true [SHIFT 6236]; A 29783 1 true [SHIFT 5349]; A 29785 1 true [SHIFT 13959];
   A 29787 1 true [SHIFT 6608]; A 29789 1 true [SHIFT 13323]; A 29791 1 true [SHIFT 5363];
   A 29793 1 true [SHIFT 13358]; A 29795 1 true [SHIFT 6408]; A 29797 1 true [SHIFT 14199];
   A 29799 1 true [SHIFT 6523]; A 29801 1 true [SHIFT 5375]; A 29803 1 true [SHIFT 3366];
   A 29805 1 true [SHIFT 14232]; A 29807 1 true [SHIFT 13548]; A 29809 1 true [SHIFT 13576];
   A 29811 1 true [SHIFT 13246]; A 29813 1 true [SHIFT 5387]; A 29815 1 true [SHIFT 5395];
   A 29817 1 true [SHIFT 13317]; A 29819 1 true [SHIFT 6473]; A 29821 1 true [SHIFT 6600];
   A 29823 1 true [SHIFT 10259]; A 29825 1 false [SHIFT 10652]; A 29827 1 true [SHIFT 10822];
   A 29829 1 true [SHIFT 14276]; A 29831 1 true [SHIFT 1322]; A 29833 1 true [SHIFT 10260];
   A 29835 1 true [SHIFT 13545]; A 29837 1 true [SHIFT 1431]; A 29839 1 true [SHIFT 6562];
   A 29841 1 true [SHIFT 5884]; A 29843 1 true [SHIFT 1323]; A 29845 1 true [SHIFT 12168];
   A 29847 1 true [SHIFT 4408]; A 29849 1 true [SHIFT 2695]; A 29851 1 true [SHIFT 10545];
   A 29853 1 true [SHIFT 2346]; A 29855 1 true [SHIFT 6522]; A 29857 1 true [SHIFT 2299];
   A 29859 1 true [SHIFT 12830]; A 29861 1 true [SHIFT 15455]; A 29863 1 true [SHIFT 15456];
   A 29865 1 true [SHIFT 3857]; A 29867 1 true [SHIFT 10679]; A 29869 1 true [SHIFT 2351];
   A 29871 1 true [SHIFT 13561]; A 29873 1 true [SHIFT 1221]; A 29875 1 true [SHIFT 2430];
   A 29877 1 true [SHIFT 13058]; A 29879 1 true [SHIFT 11018]; A 29881 1 true [SHIFT 12953];
   A 29883 1 true [SHIFT 12956]; A 29885 1 true [SHIFT 10414]; A 29887 1 true [SHIFT 2302];
   A 29889 1 true [SHIFT 2314]; A 29891 1 true [SHIFT 10458]; A 29893 1 true [SHIFT 3643];
   A 29895 1 true [SHIFT 2375]; A 29897 1 true [SHIFT 2048]; A 29899 1 true [SHIFT 13900];
   A 29901 1 true [SHIFT 14020]; A 29903 1 true [SHIFT 3391]; A 29905 1 true [SHIFT 12179];
   A 29907 1 true [SHIFT 13012]; A 29909 1 true [SHIFT 3312]; A 29911 1 true [SHIFT 1831];
   A 29913 1 true [SHIFT 11520]; A 29915 1 true [SHIFT 15669]; A 29917 1 true [SHIFT 15681];
   A 29919 1 true [SHIFT 8533]; A 29921 1 true [SHIFT 9697]; A 29923 1 true [SHIFT 12875];
   A 29925 1 true [SHIFT 12879]; A 29927 1 true [SHIFT 5176]; A 29929 1 true [SHIFT 1258];
   A 29931 1 true [SHIFT 7320]; A 29933 1 true [SHIFT 13998]; A 29935 1 true [SHIFT 2978];
   A 29937 1 true [SHIFT 1259]; A 29939 1 true [SHIFT 5941]; A 29941 1 true [SHIFT 13063];
   A 29943 1 true [SHIFT 13108]; A 29945 1 true [SHIFT 1261]; A 29947 1 true [SHIFT 13010];
   A 29949 1 true [SHIFT 11519]; A 29951 1 true [SHIFT 4674]; A 29953 1 true [SHIFT 436];
   A 29955 1 true [SHIFT 12671]; A 29957 1 true [SHIFT 15835]; A 29959 1 true [SHIFT 15839];
   A 29961 1 true [SHIFT 6550]; A 29963 1 true [SHIFT 5975]; A 29965 1 true [SHIFT 5998];
   A 29967 1 true [SHIFT 12194]; A 29969 1 true [SHIFT 12196]; A 29971 1 true [SHIFT 4413];
   A 29973 1 true [SHIFT 835]; A 29975 1 true [SHIFT 4495]; A 29977 1 true [SHIFT 3008];
   A 29979 1 true [SHIFT 8775]; A 29981 1 true [SHIFT 13497]; A 29983 1 true [SHIFT 13506];
   A 29985 1 true [SHIFT 324]; A 29987 1 true [SHIFT 4694]; A 29989 1 true [SHIFT 10793];
   A 29991 1 true [SHIFT 15950]; A 29993 1 true [SHIFT 2648]; A 29995 1 true [SHIFT 12626];
   A 29997 1 true [SHIFT 2655]; A 29999 1 true [SHIFT 2030]; A 30001 1 true [SHIFT 4652];
   A 30003 1 true [SHIFT 12657]; A 30005 1 true [SHIFT 1937]; A 30007 1 true [SHIFT 12235];
   A 30009 1 true [SHIFT 13658]; A 30011 1 true [SHIFT 9304]; A 30013 1 true [SHIFT 3014];
   A 30015 1 true [SHIFT 2315]; A 30017 1 true [SHIFT 2439]; A 30019 1 true [SHIFT 14759];
   A 30021 1 true [SHIFT 2533]; A 30023 1 true [SHIFT 2916]; A 30025 1 true [SHIFT 3087];
   A 30027 1 true [SHIFT 14046]; A 30029 1 true [SHIFT 14053]; A 30031 1 true [SHIFT 4432];
   A 30033 1 true [SHIFT 7887]; A 30035 1 true [SHIFT 13438]; A 30037 1 true [SHIFT 12429];
   A 30039 1 true [SHIFT 12819]; A 30041 1 true [SHIFT 13439]; A 30043 1 true [SHIFT 12826];
   A 30045 1 true [SHIFT 14382]; A 30047 1 true [SHIFT 14384]; A 30049 1 true [SHIFT 8580];
   A 30051 1 true [SHIFT 5276]; A 30053 1 true [SHIFT 12702]; A 30055 1 true [SHIFT 5937];
   A 30057 1 true [SHIFT 2732]; A 30059 1 true [SHIFT 2953]; A 30061 1 true [SHIFT 2007];
   A 30063 1 true [SHIFT 3031]; A 30065 1 true [SHIFT 8576];
   A 30067 1 true [REDUCE sym_declClass 6 0 249]; A 30069 1 true [SHIFT 1835];
   A 30071 1 true [SHIFT 4015]; A 30073 1 true [SHIFT 8284]; A 30075 1 true [SHIFT 8510];
   A 30077 1 true [SHIFT 12413]; A 30079 1 true [SHIFT 853]; A 30081 1 true [SHIFT 7892];
   A 30083 1 true [SHIFT 2931]; A 30085 1 true [SHIFT 7893]; A 30087 1 true [SHIFT 1840];
   A 30089 1 true [REDUCE sym_declClass 6 0 250]; A 30091 1 true [SHIFT 2498];
   A 30093 1 true [SHIFT 10630]; A 30095 1 true [SHIFT 2353]; A 30097 1 true [SHIFT 10957];
   A 30099 1 true [SHIFT 12359]; A 30101 1 true [SHIFT 9131];
   A 30103 1 true [REDUCE sym_declIntf 6 0 251]; A 30105 1 true [SHIFT 2164];
   A 30107 1 true [SHIFT 14529]; A 30109 1 true [SHIFT 14530]; A 30111 1 true [SHIFT 5641];
   A 30113 1 true [SHIFT 2219]; A 30115 1 true [SHIFT 9611]; A 30117 1 true [SHIFT 11460];
   A 30119 1 true [SHIFT 14993]; A 30121 1 true [SHIFT 11678]; A 30123 1 true [SHIFT 11680];
   A 30125 1 true [SHIFT 2229]; A 30127 1 true [SHIFT 11461]; A 30129 1 true [SHIFT 12538];
   A 30131 1 true [SHIFT 798]; A 30133 1 true [SHIFT 12546]; A 30135 1 true [SHIFT 5813];
   A 30137 1 true [REDUCE sym_declIntf 6 0 250]; A 30139 1 true [SHIFT 2108];
   A 30141 1 true [SHIFT 5362]; A 30143 1 true [SHIFT 2517]; A 30145 1 true [SHIFT 8469];
   A 30147 1 true [SHIFT 2521]; A 30149 1 true [SHIFT 849]; A 30151 1 true [SHIFT 7504];
   A 30153 1 true [SHIFT 9412]; A 30155 1 true [SHIFT 13474]; A 30157 1 true [SHIFT 13476];
   A 30159 1 true [SHIFT 728]; A 30161 1 true [SHIFT 9491]; A 30163 1 true [SHIFT 7509];
   A 30165 1 true [SHIFT 7512]; A 30167 1 true [SHIFT 14633]; A 30169 1 true [SHIFT 14634];
   A 30171 1 true [SHIFT 5756]; A 30173 1 true [SHIFT 2168];
   A 30175 2 true [REDUCE sym_asmTr 2 0 0; SHIFT 1338]; A 30178 1 true [SHIFT 11524];
   A 30180 1 true [SHIFT 12165]; A 30182 1 true [REDUCE sym_declClass 6 0 252];
   A 30184 1 true [SHIFT 10706]; A 30186 1 true [SHIFT 1843]; A 30188 1 true [SHIFT 1940];
   A 30190 1 true [SHIFT 9134]; A 30192 1 true [SHIFT 9135]; A 30194 1 true [SHIFT 731];
   A 30196 1 true [SHIFT 2945]; A 30198 1 true [SHIFT 2169]; A 30200 1 true [SHIFT 3356];
   A 30202 1 true [SHIFT 1975]; A 30204 1 true [SHIFT 2170]; A 30206 1 true [SHIFT 14693];
   A 30208 1 true [REDUCE sym_unit 6 0 0]; A 30210 1 true [SHIFT 12209];
   A 30212 1 true [SHIFT 12759]; A 30214 1 true [REDUCE sym_declClass 6 0 0];
   A 30216 1 true [REDUCE sym_library 6 0 0]; A 30218 1 true [REDUCE sym_declIntf 6 0 253];
   A 30220 1 true [SHIFT 983]; A 30222 1 true [SHIFT 13499]; A 30224 1 true [SHIFT 5416];
   A 30226 1 true [REDUCE sym_library 6 0 149]; A 30228 1 true [SHIFT 7418];
   A 30230 1 true [REDUCE sym_declIntf 6 0 249]; A 30232 1 true [SHIFT 4450];
   A 30234 1 true [SHIFT 7240]; A 30236 1 true [SHIFT 2440]; A 30238 1 true [SHIFT 7242];
   A 30240 1 true [SHIFT 7243]; A 30242 1 true [REDUCE sym_kEndDot 1 0 0];
   A 30244 1 true [SHIFT 8538]; A 30246 1 true [SHIFT 7974]; A 30248 1 true [SHIFT 14948];
   A 30250 1 true [SHIFT 14949]; A 30252 1 true [SHIFT 2686]; A 30254 1 true [SHIFT 14712];
   A 30256 1 true [SHIFT 3012]; A 30258 1 true [SHIFT 2051]; A 30260 1 true [SHIFT 10859];
   A 30262 1 true [SHIFT 2928]; A 30264 1 true [REDUCE aux_sym_declExports_repeat1 2 0 0];
   A 30266 1 true [SHIFT 8539]; A 30268 1 true [SHIFT 4032]; A 30270 1 true [SHIFT 10642];
   A 30272 1 true [SHIFT 1848]; A 30274 1 true [SHIFT 5852]; A 30276 1 true [SHIFT 10343];
   A 30278 1 true [SHIFT 2688]; A 30280 1 true [SHIFT 746]; A 30282 1 true [SHIFT 14018];
   A 30284 1 true [SHIFT 5526]; A 30286 1 true [SHIFT 2362]; A 30288 1 true [SHIFT 13535];
   A 30290 1 true [SHIFT 13537]; A 30292 1 true [SHIFT 2364]; A 30294 1 true [SHIFT 13538];
   A 30296 1 true [SHIFT 2941]; A 30298 1 true [SHIFT 1224]; A 30300 1 true [SHIFT 1850];
   A 30302 1 true [SHIFT 4423]; A 30304 1 true [SHIFT 5486];
   A 30306 1 true [REDUCE sym_program 6 0 149]; A 30308 1 true [SHIFT 15045];
   A 30310 1 true [SHIFT 15046]; A 30312 1 true [SHIFT 11118]; A 30314 1 true [SHIFT 7254];
   A 30316 1 true [SHIFT 2898]; A 30318 1 true [SHIFT 9125]; A 30320 1 true [SHIFT 13895];
   A 30322 1 true [SHIFT 909]; A 30324 1 true [SHIFT 5182]; A 30326 1 true [SHIFT 9129];
   A 30328 1 true [SHIFT 9130]; A 30330 1 true [SHIFT 13721]; A 30332 1 true [SHIFT 12146];
   A 30334 1 true [SHIFT 11555]; A 30336 1 true [SHIFT 11569]; A 30338 1 true [SHIFT 11469];
   A 30340 1 true [SHIFT 15187]; A 30342 1 true [SHIFT 10528]; A 30344 1 true [SHIFT 2374];
   A 30346 1 true [SHIFT 1854]; A 30348 1 true [SHIFT 11471]; A 30350 1 true [SHIFT 9056];
   A 30352 1 true [SHIFT 1859]; A 30354 1 true [SHIFT 15106]; A 30356 1 true [SHIFT 15107];
   A 30358 1 true [SHIFT 2487]; A 30360 1 true [SHIFT 4687]; A 30362 1 true [SHIFT 1950];
   A 30364 1 true [SHIFT 3431]; A 30366 1 true [SHIFT 12371]; A 30368 1 true [SHIFT 684];
   A 30370 1 true [SHIFT 7909]; A 30372 1 true [SHIFT 2190]; A 30374 1 true [SHIFT 9736];
   A 30376 1 true [SHIFT 180]; A 30378 1 true [SHIFT 2976]; A 30380 1 true [SHIFT 4721];
   A 30382 1 true [SHIFT 2408]; A 30384 1 true [SHIFT 9174]; A 30386 1 true [SHIFT 2983];
   A 30388 1 true [SHIFT 15149]; A 30390 1 true [SHIFT 7716]; A 30392 1 true [SHIFT 12825];
   A 30394 1 true [SHIFT 9969]; A 30396 1 true [SHIFT 1635]; A 30398 1 true [SHIFT 1637];
   A 30400 1 true [SHIFT 7538]; A 30402 1 true [SHIFT 7718]; A 30404 1 true [SHIFT 7719];
   A 30406 1 true [SHIFT 13587]; A 30408 1 true [SHIFT 13588]; A 30410 1 true [SHIFT 12837];
   A 30412 1 true [REDUCE sym__exceptionHandlersTr 3 0 0]; A 30414 1 true [SHIFT 1952];
   A 30416 1 true [SHIFT 4465]; A 30418 1 true [SHIFT 2003]; A 30420 1 true [SHIFT 1953];
   A 30422 1 true [SHIFT 7541]; A 30424 1 true [SHIFT 7542]; A 30426 1 true [SHIFT 3184];
   A 30428 1 true [SHIFT 2443]; A 30430 1 true [SHIFT 2723]; A 30432 1 true [SHIFT 10573];
   A 30434 1 true [SHIFT 15280]; A 30436 1 true [SHIFT 15282]; A 30438 1 true [SHIFT 3035];
   A 30440 1 true [SHIFT 2925]; A 30442 1 true [SHIFT 2210]; A 30444 1 true [SHIFT 2473];
   A 30446 1 true [SHIFT 2369]; A 30448 1 true [SHIFT 13724]; A 30450 1 true [SHIFT 2694];
   A 30452 1 true [SHIFT 5345]; A 30454 1 true [SHIFT 7732]; A 30456 1 true [SHIFT 3024];
   A 30458 1 true [SHIFT 3029]; A 30460 1 true [SHIFT 2874]; A 30462 1 true [SHIFT 12845];
   A 30464 1 true [SHIFT 8904]; A 30466 1 true [SHIFT 1861]; A 30468 1 true [SHIFT 2264];
   A 30470 1 true [SHIFT 2539]; A 30472 1 true [SHIFT 10578]; A 30474 1 true [SHIFT 8907];
   A 30476 1 true [SHIFT 3883]; A 30478 1 true [SHIFT 8908]; A 30480 1 true [SHIFT 10552];
   A 30482 1 true [SHIFT 12853]; A 30484 1 true [SHIFT 15347]; A 30486 1 true [SHIFT 15348];
   A 30488 1 true [SHIFT 2268]; A 30490 1 true [SHIFT 13626]; A 30492 1 true [SHIFT 13629];
   A 30494 1 true [SHIFT 1866]; A 30496 1 true [SHIFT 2272]; A 30498 1 true [SHIFT 2274];
   A 30500 1 true [SHIFT 2477]; A 30502 1 true [SHIFT 2211]; A 30504 1 true [SHIFT 5687];
   A 30506 1 true [SHIFT 2480]; A 30508 1 true [SHIFT 10621];
   A 30510 1 true [REDUCE sym_declIntf 4 0 156]; A 30512 1 true [SHIFT 1870];
   A 30514 1 true [SHIFT 1872]; A 30516 1 true [SHIFT 12422]; A 30518 1 true [SHIFT 2278];
   A 30520 1 true [SHIFT 1959]; A 30522 1 true [SHIFT 2933]; A 30524 1 true [SHIFT 717];
   A 30526 1 true [SHIFT 2212]; A 30528 1 true [SHIFT 15403]; A 30530 1 true [SHIFT 15404];
   A 30532 1 true [SHIFT 4444]; A 30534 1 true [SHIFT 2217]; A 30536 1 true [SHIFT 1661];
   A 30538 1 true [SHIFT 8925]; A 30540 1 true [SHIFT 14698]; A 30542 1 true [SHIFT 8088];
   A 30544 1 true [SHIFT 1663]; A 30546 1 true [SHIFT 2444];
   A 30548 1 true [REDUCE sym_declClass 7 0 279]; A 30550 1 true [SHIFT 2445];
   A 30552 1 true [REDUCE sym_declClass 7 0 280]; A 30554 1 true [SHIFT 8090];
   A 30556 1 true [SHIFT 8091]; A 30558 1 true [SHIFT 13651]; A 30560 1 true [SHIFT 15470];
   A 30562 1 true [REDUCE sym_declIntf 3 0 96]; A 30564 1 true [SHIFT 12890];
   A 30566 1 true [SHIFT 1667]; A 30568 1 true [SHIFT 1540]; A 30570 1 true [SHIFT 1960];
   A 30572 1 true [SHIFT 1963]; A 30574 1 true [REDUCE aux_sym_genericArg_repeat1 2 0 0];
   A 30576 1 true [SHIFT 3610]; A 30578 1 true [SHIFT 2428]; A 30580 1 true [SHIFT 4473];
   A 30582 1 true [SHIFT 5907]; A 30584 1 true [SHIFT 5774]; A 30586 1 true [SHIFT 2689];
   A 30588 1 true [SHIFT 15678]; A 30590 1 true [SHIFT 15679];
   A 30592 1 true [REDUCE sym_declHelper 7 0 208]; A 30594 1 true [SHIFT 2707];
   A 30596 1 true [SHIFT 2464]; A 30598 1 true [SHIFT 2708]; A 30600 1 true [SHIFT 2709];
   A 30602 1 true [SHIFT 2957]; A 30604 1 true [SHIFT 2691]; A 30606 1 true [SHIFT 2965];
   A 30608 1 true [REDUCE sym_declIntf 7 0 281]; A 30610 1 true [SHIFT 3954];
   A 30612 1 true [SHIFT 3955]; A 30614 1 true [SHIFT 11477]; A 30616 1 true [SHIFT 2705];
   A 30618 1 true [REDUCE sym_declClass 7 0 282]; A 30620 1 true [SHIFT 1877];
   A 30622 1 true [SHIFT 4693]; A 30624 1 true [SHIFT 1880]; A 30626 1 true [SHIFT 8142];
   A 30628 1 true [SHIFT 1885]; A 30630 1 true [SHIFT 15768]; A 30632 1 true [SHIFT 15770];
   A 30634 1 true [REDUCE sym_library 5 0 0]; A 30636 1 true [SHIFT 1679];
   A 30638 1 true [SHIFT 1681]; A 30640 1 true [SHIFT 2377]; A 30642 1 true [SHIFT 13710];
   A 30644 1 true [SHIFT 8998]; A 30646 1 true [SHIFT 2382]; A 30648 1 true [SHIFT 13712];
   A 30650 1 true [SHIFT 1967]; A 30652 1 true [SHIFT 2998]; A 30654 1 true [SHIFT 1225];
   A 30656 1 true [SHIFT 1889]; A 30658 1 true [SHIFT 9003]; A 30660 1 true [SHIFT 1990];
   A 30662 1 true [SHIFT 15818]; A 30664 1 true [SHIFT 15819]; A 30666 1 true [SHIFT 9004];
   A 30668 1 true [SHIFT 1226]; A 30670 1 true [SHIFT 11612]; A 30672 1 true [SHIFT 14014];
   A 30674 1 true [SHIFT 8230]; A 30676 1 true [SHIFT 15840]; A 30678 1 true [SHIFT 12963];
   A 30680 1 true [REDUCE sym_declIntf 7 0 283]; A 30682 1 true [SHIFT 2863];
   A 30684 1 true [REDUCE sym_declIntf 7 0 279]; A 30686 1 true [SHIFT 13950];
   A 30688 1 true [SHIFT 5573]; A 30690 1 true [SHIFT 13092]; A 30692 1 true [SHIFT 4488];
   A 30694 1 true [SHIFT 12803]; A 30696 1 true [SHIFT 11490]; A 30698 1 true [SHIFT 2932];
   A 30700 1 true [SHIFT 2725]; A 30702 1 true [SHIFT 2873]; A 30704 1 true [SHIFT 13956];
   A 30706 1 true [SHIFT 4845]; A 30708 1 true [REDUCE sym_library 5 0 93];
   A 30710 1 true [SHIFT 8121]; A 30712 1 true [SHIFT 8604]; A 30714 1 true [SHIFT 2937];
   A 30716 1 true [SHIFT 8552]; A 30718 1 true [SHIFT 4717]; A 30720 1 true [SHIFT 2949];
   A 30722 1 true [SHIFT 8559]; A 30724 1 true [SHIFT 12513]; A 30726 1 true [SHIFT 8560];
   A 30728 1 true [SHIFT 7557]; A 30730 1 true [SHIFT 13794];
   A 30732 1 true [REDUCE aux_sym_moduleName_repeat1 2 0 0]; A 30734 1 true [SHIFT 2329];
   A 30736 1 true [SHIFT 2335]; A 30738 1 true [SHIFT 4501]; A 30740 1 true [SHIFT 8123];
   A 30742 1 true [SHIFT 12902]; A 30744 1 true [SHIFT 4340]; A 30746 1 true [SHIFT 9342];
   A 30748 1 true [SHIFT 4050]; A 30750 1 true [SHIFT 2489]; A 30752 1 true [SHIFT 10519];
   A 30754 1 true [SHIFT 13791]; A 30756 1 true [SHIFT 13795]; A 30758 1 true [SHIFT 2518];
   A 30760 1 true [SHIFT 3365]; A 30762 1 true [SHIFT 4952]; A 30764 1 true [SHIFT 12506];
   A 30766 1 true [SHIFT 8312]; A 30768 1 true [SHIFT 2387]; A 30770 1 true [SHIFT 12527];
   A 30772 1 true [SHIFT 13645]; A 30774 1 true [SHIFT 8130];
   A 30776 1 true [REDUCE sym_declClass 8 0 296]; A 30778 1 true [SHIFT 2853];
   A 30780 1 true [SHIFT 8133]; A 30782 1 true [SHIFT 8135]; A 30784 1 true [SHIFT 4514];
   A 30786 1 true [SHIFT 9349]; A 30788 1 true [SHIFT 9350];
   A 30790 1 true [REDUCE sym_declHelper 8 0 249]; A 30792 1 true [SHIFT 13729];
   A 30794 1 true [SHIFT 13742]; A 30796 1 true [REDUCE sym_declClass 8 0 297];
   A 30798 1 true [REDUCE sym_declClass 8 0 298]; A 30800 1 true [SHIFT 6438];
   A 30802 1 true [SHIFT 4534]; A 30804 1 true [SHIFT 8234];
   A 30806 1 true [REDUCE sym_declIntf 8 0 299]; A 30808 1 true [SHIFT 3056];
   A 30810 1 true [SHIFT 10281]; A 30812 1 true [SHIFT 7775]; A 30814 1 true [SHIFT 5538];
   A 30816 1 true [SHIFT 2129]; A 30818 1 true [SHIFT 8235]; A 30820 1 true [SHIFT 11486];
   A 30822 1 true [SHIFT 11488]; A 30824 1 true [SHIFT 904]; A 30826 1 true [SHIFT 13862];
   A 30828 1 true [SHIFT 13864]; A 30830 1 true [SHIFT 5086]; A 30832 1 true [SHIFT 4529];
   A 30834 1 true [SHIFT 11614]; A 30836 1 true [SHIFT 11674]; A 30838 1 true [SHIFT 7945];
   A 30840 1 true [SHIFT 13069]; A 30842 1 true [SHIFT 3486]; A 30844 1 true [SHIFT 2868];
   A 30846 1 true [SHIFT 10613]; A 30848 1 true [SHIFT 12686]; A 30850 1 true [SHIFT 3494];
   A 30852 1 true [SHIFT 3495]; A 30854 1 true [SHIFT 2541]; A 30856 1 true [SHIFT 14880];
   A 30858 1 true [REDUCE sym_declIntf 4 0 157]; A 30860 1 true [REDUCE sym_declClass 9 0 303];
   A 30862 1 true [SHIFT 13140]; A 30864 1 true [REDUCE sym_declHelper 9 0 279];
   A 30866 2 true [REDUCE sym_asmTr 3 0 0; SHIFT 1319]; A 30869 1 true [SHIFT 4545];
   A 30871 1 true [REDUCE sym_declClass 9 0 304]; A 30873 1 true [SHIFT 5394];
   A 30875 1 true [SHIFT 740]; A 30877 1 true [SHIFT 4387]; A 30879 1 true [ACCEPT_INPUT];
   A 30881 1 true [SHIFT 13898]; A 30883 1 true [SHIFT 1970];
   A 30885 1 true [REDUCE sym_unit 5 0 0]; A 30887 1 true [SHIFT 1895];
   A 30889 1 true [SHIFT 5230]; A 30891 1 true [SHIFT 923]; A 30893 1 true [SHIFT 3560];
   A 30895 1 true [SHIFT 7808]; A 30897 1 true [SHIFT 2577]; A 30899 1 true [SHIFT 4554];
   A 30901 1 true [SHIFT 4548]; A 30903 1 true [SHIFT 5719]; A 30905 1 true [SHIFT 7814];
   A 30907 1 true [SHIFT 7819]; A 30909 1 true [SHIFT 278]; A 30911 1 true [SHIFT 9486];
   A 30913 1 true [SHIFT 14009]; A 30915 1 true [SHIFT 14013]; A 30917 1 true [SHIFT 9161];
   A 30919 1 true [SHIFT 13206]; A 30921 1 true [REDUCE sym_declClass 10 0 306];
   A 30923 1 true [SHIFT 2641]; A 30925 1 true [SHIFT 4400]; A 30927 1 true [SHIFT 13369];
   A 30929 1 true [SHIFT 13074]; A 30931 1 true [SHIFT 13080]; A 30933 1 true [SHIFT 2654];
   A 30935 1 true [SHIFT 4564]; A 30937 1 true [SHIFT 4064]; A 30939 1 true [SHIFT 13767];
   A 30941 1 true [SHIFT 1899]; A 30943 1 true [SHIFT 2358]; A 30945 1 true [SHIFT 2594];
   A 30947 1 true [SHIFT 8188]; A 30949 1 true [SHIFT 8343]; A 30951 1 true [SHIFT 13199];
   A 30953 1 true [SHIFT 13213]; A 30955 1 true [SHIFT 4767]; A 30957 1 true [SHIFT 4208];
   A 30959 1 true [SHIFT 13822]; A 30961 1 true [SHIFT 7792]; A 30963 1 true [SHIFT 9374];
   A 30965 1 true [SHIFT 10375]; A 30967 1 true [SHIFT 7592]; A 30969 1 true [SHIFT 708];
   A 30971 1 true [SHIFT 8695]; A 30973 1 true [SHIFT 13773]; A 30975 1 true [SHIFT 4571];
   A 30977 1 true [SHIFT 7594]; A 30979 1 true [SHIFT 7595]; A 30981 1 true [SHIFT 13818];
   A 30983 1 true [SHIFT 12366]; A 30985 1 true [SHIFT 2606]; A 30987 1 true [SHIFT 2546];
   A 30989 1 true [SHIFT 9013]; A 30991 1 true [SHIFT 14068]; A 30993 1 true [SHIFT 14070];
   A 30995 1 true [SHIFT 8346]; A 30997 1 true [SHIFT 8727];
   A 30999 2 true [REDUCE sym_constDef 5 0 132; SHIFT 947]; A 31002 1 true [SHIFT 8347];
   A 31004 1 true [SHIFT 10479]; A 31006 1 true [SHIFT 8733]; A 31008 1 true [SHIFT 2909];
   A 31010 1 true [SHIFT 1973]; A 31012 1 true [SHIFT 9015]; A 31014 1 true [SHIFT 4590];
   A 31016 1 true [SHIFT 9016]; A 31018 1 true [SHIFT 1905]; A 31020 1 true [SHIFT 6993];
   A 31022 1 true [SHIFT 2642]; A 31024 1 true [SHIFT 1941]; A 31026 1 true [SHIFT 2636];
   A 31028 1 true [SHIFT 4220]; A 31030 1 true [REDUCE sym_declClass 5 0 208];
   A 31032 1 true [SHIFT 7604]; A 31034 1 true [SHIFT 5969]; A 31036 1 true [SHIFT 8428];
   A 31038 1 true [SHIFT 4142]; A 31040 1 true [SHIFT 10888]; A 31042 1 true [SHIFT 4601];
   A 31044 1 true [SHIFT 2171]; A 31046 1 true [SHIFT 2659]; A 31048 1 true [SHIFT 8508];
   A 31050 1 true [SHIFT 8535]; A 31052 1 true [SHIFT 1907]; A 31054 1 true [SHIFT 763];
   A 31056 1 true [SHIFT 2548]
  ].

Definition ts_parse_actions_31058 : list (Z * list TSParseActionEntry) :=
  [
   A 31058 1 true [SHIFT 1811]; A 31060 1 true [SHIFT 2598]; A 31062 1 true [SHIFT 10596];
   A 31064 1 true [SHIFT 2549]; A 31066 1 true [SHIFT 14097]; A 31068 1 true [SHIFT 14099];
   A 31070 1 true [SHIFT 13331]; A 31072 1 true [SHIFT 13336]; A 31074 1 true [SHIFT 2467];
   A 31076 1 true [SHIFT 11679]; A 31078 1 true [SHIFT 3830]; A 31080 1 true [SHIFT 539];
   A 31082 1 true [SHIFT 4611]; A 31084 1 true [SHIFT 947]; A 31086 1 true [SHIFT 2643];
   A 31088 1 true [SHIFT 2292]; A 31090 1 true [SHIFT 6156]; A 31092 1 true [SHIFT 7642];
   A 31094 1 true [SHIFT 4239]; A 31096 1 true [SHIFT 13209]; A 31098 1 true [SHIFT 8372];
   A 31100 1 true [SHIFT 11850]; A 31102 1 true [SHIFT 13393]; A 31104 1 true [SHIFT 13293];
   A 31106 1 true [SHIFT 8743]; A 31108 1 true [SHIFT 1956]; A 31110 1 true [SHIFT 1689];
   A 31112 1 true [SHIFT 14995]; A 31114 1 true [SHIFT 1597]; A 31116 1 true [SHIFT 1603];
   A 31118 1 true [SHIFT 4620]; A 31120 1 true [SHIFT 925]; A 31122 1 true [SHIFT 8750];
   A 31124 1 true [SHIFT 8751]; A 31126 1 true [SHIFT 1328]; A 31128 1 true [SHIFT 7646];
   A 31130 1 true [SHIFT 10427]; A 31132 1 true [SHIFT 1934]; A 31134 1 true [SHIFT 1936];
   A 31136 1 true [SHIFT 2644]; A 31138 1 true [SHIFT 3847]; A 31140 1 true [SHIFT 13857];
   A 31142 1 true [SHIFT 2612]; A 31144 1 true [SHIFT 2645]; A 31146 1 true [SHIFT 13416];
   A 31148 1 true [SHIFT 13689]; A 31150 1 true [SHIFT 2294]; A 31152 1 true [SHIFT 3641];
   A 31154 1 true [SHIFT 13205]; A 31156 1 true [SHIFT 4626]; A 31158 1 true [SHIFT 342];
   A 31160 1 true [SHIFT 1767]; A 31162 1 true [SHIFT 14834]; A 31164 1 true [SHIFT 4254];
   A 31166 1 true [SHIFT 10394]; A 31168 1 true [SHIFT 8785]; A 31170 1 true [SHIFT 13470];
   A 31172 1 true [SHIFT 2629]; A 31174 1 true [SHIFT 8233]; A 31176 1 true [SHIFT 4632];
   A 31178 1 true [SHIFT 677]; A 31180 1 true [SHIFT 1695]; A 31182 1 true [SHIFT 1697];
   A 31184 1 true [SHIFT 8251]; A 31186 1 true [SHIFT 2569]; A 31188 1 true [SHIFT 8255];
   A 31190 1 true [SHIFT 11066]; A 31192 1 true [SHIFT 2568]; A 31194 1 true [SHIFT 4829];
   A 31196 1 true [SHIFT 2871]; A 31198 1 true [SHIFT 714]; A 31200 1 true [SHIFT 8922];
   A 31202 1 true [SHIFT 577]; A 31204 1 true [SHIFT 1933]; A 31206 1 true [SHIFT 4643];
   A 31208 1 true [SHIFT 9035]; A 31210 1 true [SHIFT 1702]; A 31212 1 true [SHIFT 2415];
   A 31214 1 true [SHIFT 12968]; A 31216 1 true [SHIFT 12972]; A 31218 1 true [SHIFT 1614];
   A 31220 1 true [SHIFT 1618]; A 31222 1 true [SHIFT 4275]; A 31224 1 true [SHIFT 2506];
   A 31226 1 true [SHIFT 7060]; A 31228 1 true [SHIFT 1622]; A 31230 1 true [SHIFT 13411];
   A 31232 1 true [SHIFT 1624]; A 31234 1 true [SHIFT 1944]; A 31236 1 true [SHIFT 1947];
   A 31238 1 true [REDUCE sym_declClass 5 0 209]; A 31240 1 true [SHIFT 4655];
   A 31242 1 true [SHIFT 13513]; A 31244 1 true [SHIFT 10812]; A 31246 1 true [SHIFT 6480];
   A 31248 1 true [SHIFT 4266]; A 31250 1 true [SHIFT 2703]; A 31252 1 true [SHIFT 8413];
   A 31254 1 true [SHIFT 2635]; A 31256 1 true [SHIFT 2627]; A 31258 1 true [SHIFT 2628];
   A 31260 1 true [SHIFT 1704]; A 31262 1 true [SHIFT 1709]; A 31264 1 true [SHIFT 2525];
   A 31266 1 true [REDUCE sym_declHelper 5 0 0]; A 31268 1 true [SHIFT 2526];
   A 31270 1 true [SHIFT 2311]; A 31272 1 true [SHIFT 4660]; A 31274 1 true [SHIFT 8821];
   A 31276 1 true [SHIFT 5175]; A 31278 1 true [SHIFT 5600]; A 31280 1 true [SHIFT 837];
   A 31282 1 true [SHIFT 8823]; A 31284 1 true [SHIFT 8824]; A 31286 1 true [SHIFT 1633];
   A 31288 1 true [SHIFT 1642]; A 31290 1 true [SHIFT 7101]; A 31292 1 true [SHIFT 1942];
   A 31294 1 true [SHIFT 1713]; A 31296 1 true [SHIFT 7063]; A 31298 1 true [SHIFT 13600];
   A 31300 1 true [SHIFT 4666]; A 31302 1 true [SHIFT 13612]; A 31304 1 true [SHIFT 13644];
   A 31306 1 true [SHIFT 2502]; A 31308 1 true [SHIFT 2224]; A 31310 1 true [SHIFT 6798];
   A 31312 1 true [SHIFT 802]; A 31314 1 true [SHIFT 874]; A 31316 1 true [SHIFT 12380];
   A 31318 1 true [SHIFT 5583]; A 31320 1 true [SHIFT 875]; A 31322 1 true [SHIFT 2713];
   A 31324 1 true [SHIFT 10368]; A 31326 1 true [SHIFT 11014]; A 31328 1 true [SHIFT 2571];
   A 31330 1 true [SHIFT 13220]; A 31332 1 true [SHIFT 4672]; A 31334 1 true [SHIFT 13017];
   A 31336 1 true [SHIFT 4283]; A 31338 1 true [SHIFT 13907]; A 31340 1 true [SHIFT 8840];
   A 31342 1 true [SHIFT 7038]; A 31344 1 true [SHIFT 12292]; A 31346 1 true [SHIFT 5874];
   A 31348 1 true [SHIFT 10659]; A 31350 1 true [SHIFT 11629]; A 31352 1 true [SHIFT 7016];
   A 31354 1 true [SHIFT 7024]; A 31356 1 true [SHIFT 14104]; A 31358 1 true [SHIFT 4683];
   A 31360 1 true [SHIFT 13350]; A 31362 1 true [SHIFT 13046];
   A 31364 1 true [REDUCE sym_declIntf 5 0 210]; A 31366 1 true [SHIFT 13353];
   A 31368 1 true [SHIFT 2692]; A 31370 1 true [SHIFT 13165]; A 31372 1 true [SHIFT 13225];
   A 31374 1 true [REDUCE sym_declIntf 5 0 209]; A 31376 1 true [SHIFT 4583];
   A 31378 1 true [SHIFT 4297]; A 31380 1 true [SHIFT 7643]; A 31382 1 true [SHIFT 2392];
   A 31384 1 true [SHIFT 9037]; A 31386 1 true [SHIFT 7849]; A 31388 1 true [SHIFT 13100];
   A 31390 1 true [SHIFT 4691]; A 31392 1 true [SHIFT 8397]; A 31394 1 true [SHIFT 2454];
   A 31396 1 true [SHIFT 10597]; A 31398 1 true [SHIFT 4293]; A 31400 1 true [SHIFT 2669];
   A 31402 1 true [SHIFT 4686]; A 31404 1 true [SHIFT 7034]; A 31406 1 true [SHIFT 1955];
   A 31408 1 true [SHIFT 1485]; A 31410 1 true [SHIFT 15061]; A 31412 1 true [SHIFT 9038];
   A 31414 1 true [SHIFT 8893]; A 31416 1 true [SHIFT 814]; A 31418 1 true [SHIFT 1165];
   A 31420 1 true [SHIFT 4512]; A 31422 1 true [SHIFT 8896]; A 31424 1 true [SHIFT 8790];
   A 31426 1 true [SHIFT 8897]; A 31428 1 true [SHIFT 3455]; A 31430 1 true [SHIFT 1130];
   A 31432 1 true [SHIFT 13994]; A 31434 1 true [SHIFT 1295]; A 31436 1 true [SHIFT 1490];
   A 31438 1 true [SHIFT 7061]; A 31440 1 true [REDUCE sym_declIntf 5 0 208];
   A 31442 1 true [SHIFT 2503]; A 31444 1 true [SHIFT 13969]; A 31446 1 true [SHIFT 1771];
   A 31448 1 true [SHIFT 13745]; A 31450 1 true [SHIFT 8403]; A 31452 1 true [SHIFT 12611];
   A 31454 1 true [SHIFT 7618]; A 31456 1 true [SHIFT 5575]; A 31458 1 true [SHIFT 2432];
   A 31460 1 true [SHIFT 12327]; A 31462 1 true [SHIFT 12390]; A 31464 1 true [SHIFT 12613];
   A 31466 1 true [SHIFT 6129]; A 31468 1 true [SHIFT 2096]; A 31470 1 true [SHIFT 1020];
   A 31472 1 true [SHIFT 3563]; A 31474 1 true [SHIFT 2617]; A 31476 1 true [SHIFT 4304];
   A 31478 1 true [SHIFT 7621]; A 31480 1 true [SHIFT 7622]; A 31482 1 true [SHIFT 8919];
   A 31484 1 true [SHIFT 1913]; A 31486 1 true [SHIFT 1496]; A 31488 1 true [SHIFT 3270];
   A 31490 1 true [SHIFT 7361]; A 31492 1 true [SHIFT 1964]; A 31494 1 true [SHIFT 4871];
   A 31496 1 true [SHIFT 7364]; A 31498 1 true [SHIFT 7365]; A 31500 1 true [SHIFT 7077];
   A 31502 1 true [SHIFT 8406]; A 31504 1 true [SHIFT 1134]; A 31506 1 true [SHIFT 1498];
   A 31508 1 true [SHIFT 1354]; A 31510 1 true [SHIFT 8407]; A 31512 1 true [SHIFT 1503];
   A 31514 1 true [SHIFT 2481]; A 31516 1 true [SHIFT 4367]; A 31518 1 true [SHIFT 1776];
   A 31520 1 true [SHIFT 1308]; A 31522 1 true [SHIFT 9163]; A 31524 1 true [SHIFT 2859];
   A 31526 1 true [SHIFT 11418]; A 31528 1 true [SHIFT 11419]; A 31530 1 true [SHIFT 2718];
   A 31532 1 true [SHIFT 15133]; A 31534 1 true [SHIFT 2700]; A 31536 1 true [SHIFT 8339];
   A 31538 1 true [SHIFT 2455]; A 31540 1 true [SHIFT 12544]; A 31542 1 true [SHIFT 4314];
   A 31544 1 true [SHIFT 12547]; A 31546 1 true [SHIFT 7387]; A 31548 1 true [SHIFT 2719];
   A 31550 1 true [SHIFT 12089]; A 31552 1 true [SHIFT 12110]; A 31554 1 true [SHIFT 7184];
   A 31556 1 true [SHIFT 1915]; A 31558 1 true [SHIFT 1505]; A 31560 1 true [SHIFT 1601];
   A 31562 1 true [SHIFT 1556]; A 31564 1 true [SHIFT 4460]; A 31566 1 true [SHIFT 7186];
   A 31568 1 true [SHIFT 7187]; A 31570 1 true [SHIFT 9171]; A 31572 1 true [SHIFT 1917];
   A 31574 1 true [SHIFT 1918]; A 31576 1 true [SHIFT 9172]; A 31578 1 true [SHIFT 2313];
   A 31580 1 true [SHIFT 2522]; A 31582 1 true [SHIFT 2712]; A 31584 1 true [SHIFT 1139];
   A 31586 2 true [REDUCE sym_constDef 3 0 33; SHIFT 907]; A 31589 1 true [SHIFT 1476];
   A 31591 1 true [SHIFT 1513]; A 31593 1 true [SHIFT 8353]; A 31595 1 true [SHIFT 12624];
   A 31597 1 true [SHIFT 2504]; A 31599 1 true [SHIFT 5532]; A 31601 1 true [SHIFT 8355];
   A 31603 1 true [SHIFT 12627]; A 31605 1 true [SHIFT 10570]; A 31607 1 true [SHIFT 8269];
   A 31609 1 true [SHIFT 11481]; A 31611 1 true [SHIFT 11483]; A 31613 1 true [SHIFT 13429];
   A 31615 1 true [SHIFT 1779]; A 31617 1 true [SHIFT 1921]; A 31619 1 true [SHIFT 1518];
   A 31621 1 true [SHIFT 4326]; A 31623 1 true [SHIFT 2551]; A 31625 1 true [SHIFT 1544];
   A 31627 1 true [SHIFT 1546]; A 31629 1 true [SHIFT 7107]; A 31631 1 true [SHIFT 1550];
   A 31633 1 true [SHIFT 1552]; A 31635 1 true [SHIFT 1922]; A 31637 1 true [SHIFT 1925];
   A 31639 1 true [SHIFT 8819]; A 31641 1 true [SHIFT 7679]; A 31643 1 true [SHIFT 2516];
   A 31645 1 true [SHIFT 2456]; A 31647 1 true [SHIFT 7682]; A 31649 1 true [SHIFT 2547];
   A 31651 1 true [SHIFT 1140]; A 31653 1 true [SHIFT 7683]; A 31655 1 true [SHIFT 1141];
   A 31657 1 true [SHIFT 1520]; A 31659 1 true [SHIFT 11165]; A 31661 1 true [SHIFT 11615];
   A 31663 1 true [SHIFT 12530]; A 31665 1 true [SHIFT 2613]; A 31667 1 true [SHIFT 1525];
   A 31669 1 true [SHIFT 2554]; A 31671 1 true [SHIFT 845]; A 31673 1 true [SHIFT 10677];
   A 31675 1 true [SHIFT 3457]; A 31677 1 true [SHIFT 11506]; A 31679 1 true [SHIFT 4338];
   A 31681 1 true [SHIFT 2559]; A 31683 1 true [SHIFT 7690]; A 31685 1 true [SHIFT 2457];
   A 31687 1 true [SHIFT 2458]; A 31689 1 true [SHIFT 3061]; A 31691 1 true [SHIFT 2116];
   A 31693 1 true [SHIFT 3371]; A 31695 1 true [SHIFT 4757]; A 31697 1 true [SHIFT 2664];
   A 31699 1 true [SHIFT 3710]; A 31701 1 true [SHIFT 1255]; A 31703 1 true [SHIFT 5720];
   A 31705 1 true [SHIFT 2519]; A 31707 1 true [SHIFT 2970]; A 31709 1 true [SHIFT 2508];
   A 31711 1 true [SHIFT 11527]; A 31713 1 true [SHIFT 12703]; A 31715 1 true [SHIFT 11528];
   A 31717 1 true [SHIFT 12636]; A 31719 1 true [SHIFT 1570]; A 31721 1 true [SHIFT 1572];
   A 31723 1 true [SHIFT 2401]; A 31725 1 true [SHIFT 1928]; A 31727 1 true [SHIFT 1529];
   A 31729 1 true [SHIFT 12864]; A 31731 1 true [SHIFT 12868]; A 31733 1 true [SHIFT 12357];
   A 31735 1 true [SHIFT 9344]; A 31737 1 true [SHIFT 376]; A 31739 1 true [SHIFT 2239];
   A 31741 1 true [SHIFT 2486]; A 31743 1 true [SHIFT 253]; A 31745 1 true [SHIFT 378];
   A 31747 1 true [REDUCE sym_declIntf 3 0 0]; A 31749 1 true [SHIFT 10565];
   A 31751 1 true [SHIFT 4936]; A 31753 1 true [REDUCE sym_program 5 0 93];
   A 31755 1 true [SHIFT 11103]; A 31757 1 true [SHIFT 9044]; A 31759 1 true [SHIFT 11104];
   A 31761 1 true [SHIFT 5325]; A 31763 1 true [SHIFT 1985]; A 31765 1 true [SHIFT 8742];
   A 31767 1 true [SHIFT 12846]; A 31769 1 true [SHIFT 6346]; A 31771 1 true [SHIFT 11548];
   A 31773 1 true [SHIFT 12586]; A 31775 1 true [SHIFT 6182]; A 31777 1 true [SHIFT 4355];
   A 31779 1 true [SHIFT 7650]; A 31781 1 true [SHIFT 5591]; A 31783 1 true [SHIFT 13875];
   A 31785 1 true [SHIFT 2672]; A 31787 1 true [SHIFT 847]; A 31789 1 true [SHIFT 13262];
   A 31791 1 true [SHIFT 13877]; A 31793 1 true [SHIFT 5769]; A 31795 1 true [SHIFT 755];
   A 31797 1 true [SHIFT 772]; A 31799 1 true [SHIFT 12849]; A 31801 1 true [SHIFT 15130];
   A 31803 1 true [SHIFT 15163]; A 31805 1 true [SHIFT 10579]; A 31807 1 true [SHIFT 1032];
   A 31809 1 true [SHIFT 4816]; A 31811 1 true [SHIFT 12660]; A 31813 1 true [SHIFT 12662];
   A 31815 1 true [SHIFT 7653]; A 31817 1 true [SHIFT 7654]; A 31819 1 true [SHIFT 2243];
   A 31821 1 true [SHIFT 2631]; A 31823 1 true [REDUCE aux_sym_genericArgs_repeat1 2 0 0];
   A 31825 1 true [SHIFT 11026]; A 31827 1 true [SHIFT 12237]; A 31829 1 true [SHIFT 12251];
   A 31831 1 true [SHIFT 11214]; A 31833 1 true [SHIFT 2905]; A 31835 1 true [SHIFT 12798];
   A 31837 1 true [SHIFT 5046]; A 31839 1 true [SHIFT 11545]; A 31841 1 true [SHIFT 12612];
   A 31843 1 true [SHIFT 11566]; A 31845 1 true [SHIFT 12990]; A 31847 1 true [SHIFT 10772];
   A 31849 1 true [SHIFT 13756]; A 31851 1 true [SHIFT 14031]; A 31853 1 true [SHIFT 1784];
   A 31855 1 true [SHIFT 13976]; A 31857 1 true [SHIFT 12478]; A 31859 1 true [SHIFT 10576];
   A 31861 1 true [SHIFT 2579]; A 31863 1 true [SHIFT 4377]; A 31865 1 true [SHIFT 12480];
   A 31867 1 true [SHIFT 4856]; A 31869 1 true [SHIFT 1786]; A 31871 1 true [SHIFT 8429];
   A 31873 1 true [SHIFT 2461]; A 31875 1 true [SHIFT 2448]; A 31877 1 true [SHIFT 13406];
   A 31879 1 true [SHIFT 8746]; A 31881 1 true [SHIFT 5466]; A 31883 1 true [SHIFT 8747];
   A 31885 1 true [SHIFT 1720]; A 31887 1 true [SHIFT 2509]; A 31889 1 true [SHIFT 760];
   A 31891 1 true [SHIFT 11567]; A 31893 1 true [SHIFT 12645]; A 31895 1 true [SHIFT 9231];
   A 31897 1 true [SHIFT 5624]; A 31899 1 true [SHIFT 13079]; A 31901 1 true [SHIFT 15276];
   A 31903 1 true [SHIFT 15328]; A 31905 1 true [SHIFT 13081]; A 31907 1 true [SHIFT 13536];
   A 31909 1 true [SHIFT 7721]; A 31911 1 true [SHIFT 13610]; A 31913 1 true [SHIFT 10593];
   A 31915 1 true [SHIFT 12265]; A 31917 1 true [SHIFT 1235]; A 31919 1 true [SHIFT 10351];
   A 31921 1 true [SHIFT 4887]; A 31923 1 true [SHIFT 12656]; A 31925 1 true [SHIFT 12659];
   A 31927 1 true [SHIFT 2876]; A 31929 1 true [SHIFT 1790]; A 31931 1 true [SHIFT 2668];
   A 31933 1 true [SHIFT 1724]; A 31935 1 true [SHIFT 2671]; A 31937 1 true [SHIFT 285];
   A 31939 1 true [SHIFT 9234]; A 31941 1 true [SHIFT 2214]; A 31943 1 true [SHIFT 11577];
   A 31945 1 true [SHIFT 12679]; A 31947 1 true [SHIFT 4974]; A 31949 1 true [SHIFT 7692];
   A 31951 1 true [SHIFT 9235]; A 31953 1 true [SHIFT 2511]; A 31955 1 true [SHIFT 2463];
   A 31957 1 true [SHIFT 1795]; A 31959 1 true [SHIFT 2527]; A 31961 1 true [SHIFT 856];
   A 31963 1 true [SHIFT 2620]; A 31965 1 true [SHIFT 2304]; A 31967 1 true [SHIFT 7123];
   A 31969 1 true [SHIFT 2306]; A 31971 1 true [SHIFT 13863]; A 31973 1 true [SHIFT 13871];
   A 31975 1 true [SHIFT 12272]; A 31977 1 true [SHIFT 300]; A 31979 1 true [SHIFT 7451];
   A 31981 1 true [SHIFT 4918]; A 31983 1 true [SHIFT 7958]; A 31985 1 true [SHIFT 12970];
   A 31987 1 true [SHIFT 967]; A 31989 1 true [SHIFT 10384]; A 31991 1 true [SHIFT 12974];
   A 31993 1 true [SHIFT 778]; A 31995 1 true [SHIFT 2222]; A 31997 1 true [SHIFT 15993];
   A 31999 1 true [SHIFT 15996]; A 32001 1 true [SHIFT 7125]; A 32003 1 true [SHIFT 7126];
   A 32005 1 true [SHIFT 11582]; A 32007 1 true [SHIFT 12701]; A 32009 1 true [SHIFT 2646];
   A 32011 1 true [SHIFT 2529]; A 32013 1 true [SHIFT 2618]; A 32015 1 true [SHIFT 2699];
   A 32017 1 true [SHIFT 2530]; A 32019 1 true [SHIFT 2882]; A 32021 1 true [SHIFT 2452];
   A 32023 1 true [SHIFT 7454]; A 32025 1 true [SHIFT 7455]; A 32027 1 true [SHIFT 3183];
   A 32029 1 true [SHIFT 2411]; A 32031 1 true [SHIFT 13127]; A 32033 1 true [SHIFT 11599];
   A 32035 1 true [SHIFT 13129]; A 32037 1 true [SHIFT 13134]; A 32039 1 true [SHIFT 4955];
   A 32041 1 true [SHIFT 2716]; A 32043 1 true [SHIFT 13401]; A 32045 1 true [SHIFT 12092];
   A 32047 1 true [SHIFT 12886]; A 32049 1 true [SHIFT 2952]; A 32051 1 true [SHIFT 10485];
   A 32053 1 true [SHIFT 12888]; A 32055 1 true [SHIFT 2465]; A 32057 1 true [SHIFT 11587];
   A 32059 1 true [SHIFT 1729]; A 32061 1 true [SHIFT 10845]; A 32063 1 true [SHIFT 9820];
   A 32065 1 true [SHIFT 3194]; A 32067 1 false [SHIFT 11305]; A 32069 1 true [SHIFT 4990];
   A 32071 1 true [SHIFT 2861]; A 32073 1 true [SHIFT 14813]; A 32075 1 true [SHIFT 1218];
   A 32077 1 true [SHIFT 13692]; A 32079 1 true [SHIFT 11590]; A 32081 1 true [SHIFT 2061];
   A 32083 1 true [SHIFT 3204]; A 32085 1 true [SHIFT 11595]; A 32087 1 true [SHIFT 2662];
   A 32089 1 true [SHIFT 12993]; A 32091 1 true [SHIFT 2676]; A 32093 1 true [SHIFT 1731];
   A 32095 1 true [SHIFT 711]; A 32097 1 false [SHIFT 11235]; A 32099 1 true [SHIFT 11598];
   A 32101 1 true [SHIFT 756]; A 32103 1 true [SHIFT 2523]; A 32105 1 true [SHIFT 2524];
   A 32107 1 true [SHIFT 1736]; A 32109 1 true [SHIFT 1797]; A 32111 1 true [SHIFT 2469];
   A 32113 1 true [SHIFT 2230]; A 32115 1 true [SHIFT 976]; A 32117 1 true [SHIFT 2470];
   A 32119 1 true [SHIFT 10496]; A 32121 1 true [SHIFT 2896]; A 32123 1 true [SHIFT 11141];
   A 32125 1 true [SHIFT 2993]; A 32127 1 true [SHIFT 13843]; A 32129 1 true [SHIFT 13866];
   A 32131 1 true [SHIFT 10547]; A 32133 1 true [SHIFT 2675]; A 32135 1 true [SHIFT 2495];
   A 32137 1 true [SHIFT 3327]; A 32139 1 true [SHIFT 2576]; A 32141 1 true [SHIFT 13159];
   A 32143 1 true [SHIFT 11333]; A 32145 1 true [SHIFT 1802]; A 32147 1 true [SHIFT 4781];
   A 32149 1 true [SHIFT 3020]; A 32151 1 true [SHIFT 1452]; A 32153 1 true [SHIFT 4789];
   A 32155 1 true [SHIFT 14063]; A 32157 1 true [SHIFT 12592]; A 32159 1 true [SHIFT 12598];
   A 32161 1 true [SHIFT 2047]; A 32163 1 true [SHIFT 5019]; A 32165 1 true [SHIFT 1806];
   A 32167 1 true [SHIFT 1738]; A 32169 1 true [SHIFT 4796]; A 32171 1 true [SHIFT 9627];
   A 32173 1 true [SHIFT 1808]; A 32175 1 true [SHIFT 792]; A 32177 1 true [SHIFT 7135];
   A 32179 1 true [SHIFT 803]; A 32181 1 true [SHIFT 12630]; A 32183 1 true [SHIFT 2246];
   A 32185 1 true [SHIFT 2677]; A 32187 1 true [SHIFT 2535]; A 32189 1 true [SHIFT 2678];
   A 32191 1 true [SHIFT 702]; A 32193 1 true [SHIFT 7788]; A 32195 1 true [SHIFT 8709];
   A 32197 1 true [SHIFT 2698]; A 32199 1 true [SHIFT 13292]; A 32201 1 true [SHIFT 13312];
   A 32203 1 true [SHIFT 12650]; A 32205 1 true [SHIFT 6394]; A 32207 1 true [SHIFT 2152];
   A 32209 1 true [SHIFT 12723]; A 32211 1 true [SHIFT 2674]; A 32213 1 true [SHIFT 4640];
   A 32215 1 true [SHIFT 892]; A 32217 1 true [SHIFT 1744]; A 32219 1 true [SHIFT 1746];
   A 32221 1 true [SHIFT 10574]; A 32223 1 true [SHIFT 8769]; A 32225 1 true [SHIFT 8781];
   A 32227 1 true [SHIFT 13208]; A 32229 1 true [SHIFT 2259]; A 32231 1 true [SHIFT 2154];
   A 32233 1 true [SHIFT 13217]; A 32235 1 true [SHIFT 418]; A 32237 1 true [SHIFT 4392];
   A 32239 1 true [SHIFT 12421]; A 32241 1 true [SHIFT 2649]; A 32243 1 true [SHIFT 2621];
   A 32245 1 true [SHIFT 2158]; A 32247 1 true [SHIFT 2160]; A 32249 1 true [SHIFT 2600];
   A 32251 1 true [SHIFT 2545]; A 32253 1 true [SHIFT 827]; A 32255 1 true [SHIFT 831];
   A 32257 1 true [SHIFT 1751]; A 32259 1 true [SHIFT 15943]; A 32261 1 true [SHIFT 15952];
   A 32263 1 true [SHIFT 10562]; A 32265 1 true [SHIFT 12941]; A 32267 1 true [SHIFT 2492];
   A 32269 1 true [SHIFT 2666]; A 32271 1 true [SHIFT 2667]; A 32273 1 true [SHIFT 1687];
   A 32275 1 true [SHIFT 13477]; A 32277 1 true [SHIFT 1757]; A 32279 1 true [SHIFT 2283];
   A 32281 1 true [SHIFT 2284]; A 32283 1 true [SHIFT 13494]; A 32285 1 true [SHIFT 12915];
   A 32287 1 true [SHIFT 1761]; A 32289 1 true [SHIFT 12742]; A 32291 1 true [SHIFT 838];
   A 32293 1 true [SHIFT 10704]; A 32295 1 true [SHIFT 7799]; A 32297 1 true [SHIFT 13300];
   A 32299 1 true [SHIFT 2665]; A 32301 1 true [SHIFT 13378]; A 32303 1 true [SHIFT 10974];
   A 32305 1 true [SHIFT 7800]; A 32307 1 true [SHIFT 842]; A 32309 1 true [SHIFT 2673];
   A 32311 1 true [SHIFT 710]; A 32313 1 true [SHIFT 2622]; A 32315 1 true [SHIFT 752];
   A 32317 1 true [SHIFT 980]; A 32319 1 true [SHIFT 981]; A 32321 1 true [SHIFT 13167];
   A 32323 1 true [SHIFT 11211]; A 32325 1 true [SHIFT 899]; A 32327 1 true [SHIFT 4614];
   A 32329 1 true [SHIFT 2860]; A 32331 1 true [SHIFT 6355]; A 32333 1 true [SHIFT 3638];
   A 32335 1 true [SHIFT 2404]; A 32337 1 true [SHIFT 11219]; A 32339 1 true [SHIFT 1813];
   A 32341 1 true [SHIFT 13585]; A 32343 1 true [SHIFT 9270]; A 32345 1 true [SHIFT 1816];
   A 32347 1 true [SHIFT 2297]; A 32349 1 true [SHIFT 1821]; A 32351 1 true [SHIFT 14391];
   A 32353 1 true [SHIFT 14394]; A 32355 1 true [SHIFT 13598]; A 32357 1 true [SHIFT 12813];
   A 32359 1 true [SHIFT 903]; A 32361 1 true [SHIFT 3046]; A 32363 1 true [SHIFT 12814];
   A 32365 1 true [SHIFT 10585]; A 32367 1 true [SHIFT 4688]; A 32369 1 true [SHIFT 2180];
   A 32371 1 true [SHIFT 2623]; A 32373 1 true [SHIFT 5762]; A 32375 1 true [SHIFT 2540];
   A 32377 1 true [SHIFT 2182]; A 32379 1 true [SHIFT 13882]; A 32381 1 true [SHIFT 2556];
   A 32383 1 true [SHIFT 786]; A 32385 1 true [SHIFT 11130]; A 32387 1 true [SHIFT 13189];
   A 32389 1 true [SHIFT 13883]; A 32391 1 true [SHIFT 2872]; A 32393 1 true [SHIFT 9276];
   A 32395 1 true [SHIFT 2344]; A 32397 1 true [SHIFT 11162]; A 32399 1 true [SHIFT 1440];
   A 32401 1 true [SHIFT 11170]; A 32403 1 true [SHIFT 12147]; A 32405 1 true [SHIFT 12149];
   A 32407 1 true [SHIFT 4291]; A 32409 1 true [SHIFT 6158]; A 32411 1 true [SHIFT 1825];
   A 32413 1 true [REDUCE aux_sym_declEnum_repeat1 2 0 0]; A 32415 1 true [SHIFT 7470];
   A 32417 1 true [SHIFT 10393]; A 32419 1 true [SHIFT 2497]; A 32421 1 true [SHIFT 14619];
   A 32423 1 true [SHIFT 14620]; A 32425 1 true [SHIFT 2536]; A 32427 1 true [SHIFT 11086];
   A 32429 1 true [SHIFT 2880]; A 32431 1 true [SHIFT 12800]; A 32433 1 true [SHIFT 9291];
   A 32435 1 true [SHIFT 12310]; A 32437 1 true [SHIFT 11126]; A 32439 1 true [SHIFT 907];
   A 32441 1 true [SHIFT 10564]; A 32443 1 true [SHIFT 5101]; A 32445 1 true [SHIFT 12495];
   A 32447 1 true [SHIFT 8914]; A 32449 1 true [SHIFT 12315]; A 32451 1 true [SHIFT 12605];
   A 32453 1 true [SHIFT 2437]; A 32455 1 true [SHIFT 13328]; A 32457 1 true [SHIFT 4438];
   A 32459 1 true [SHIFT 12293]; A 32461 1 true [SHIFT 9279]; A 32463 1 true [SHIFT 9280];
   A 32465 1 true [SHIFT 7289]; A 32467 1 true [SHIFT 13345]; A 32469 1 true [SHIFT 13578];
   A 32471 1 true [SHIFT 9297]; A 32473 1 true [SHIFT 9298]; A 32475 1 true [SHIFT 244];
   A 32477 1 true [SHIFT 14833]; A 32479 1 true [SHIFT 2520]; A 32481 1 true [SHIFT 14090];
   A 32483 1 true [SHIFT 2298]; A 32485 1 true [SHIFT 12476]; A 32487 1 true [SHIFT 6290];
   A 32489 1 true [SHIFT 7291]; A 32491 1 true [SHIFT 7292]; A 32493 1 true [SHIFT 5729];
   A 32495 1 true [SHIFT 2420]; A 32497 1 true [REDUCE sym_declClass 4 0 156];
   A 32499 1 true [SHIFT 2500]; A 32501 1 true [SHIFT 12167]; A 32503 1 true [SHIFT 14034];
   A 32505 1 true [SHIFT 2111]
  ].

(** The groups of the initializer: an index and the elements from there on. *)
Definition parse_action_runs : list (Z * list TSParseActionEntry) :=
  ts_parse_actions_0
  ++ ts_parse_actions_1841
  ++ ts_parse_actions_3803
  ++ ts_parse_actions_6069
  ++ ts_parse_actions_8250
  ++ ts_parse_actions_10234
  ++ ts_parse_actions_12106
  ++ ts_parse_actions_14468
  ++ ts_parse_actions_16193
  ++ ts_parse_actions_17891
  ++ ts_parse_actions_19629
  ++ ts_parse_actions_21361
  ++ ts_parse_actions_22972
  ++ ts_parse_actions_24596
  ++ ts_parse_actions_26233
  ++ ts_parse_actions_27851
  ++ ts_parse_actions_29455
  ++ ts_parse_actions_31058.

Definition ts_parse_actions : list TSParseActionEntry :=
  designated_runs (Entry 0 false) parse_action_runs.
