(* ===== verification/ParseTable1.v ===== *)
(** * The parse table of [parser.c], states 0 to 147

    One definition for each row of [ts_parse_table], with the initializers of
    the row in the order of the source; consecutive initializers of the same
    value are one group. *)

From S2P Require Import Prelude.
From S2P Require Import Symbols.
From S2P Require Import ParseTypes.

(** State 0. *)
Definition ts_parse_table_0 : parse_row :=
  [ACTIONS 1 [ts_builtin_sym_end; aux_sym_asmBody_token1; anon_sym_SEMI; anon_sym_COLON;
   anon_sym_COMMA; aux_sym_asmBody_token2; anon_sym_LBRACK; anon_sym_RBRACK; anon_sym_LPAREN;
   anon_sym_RPAREN; aux_sym__literalString_token1; anon_sym_POUND; aux_sym_ppUsesBlock_token1;
   aux_sym_ppUsesBlock_token2; aux_sym_ppUsesBlock_token3; anon_sym_DOT; sym_kLt; sym_kEq;
   sym_kGt; sym_kLte; sym_kGte; sym_kAdd; sym_kSub; sym_kMul; sym_kFdiv; sym_kAt; sym_kHat;
   sym_kAssign; sym_kAssignAdd; sym_kAssignSub; sym_kAssignMul; sym_kAssignDiv; sym_kTrue;
   sym_labelNumber]; ACTIONS 3 [sym__space]; ACTIONS 5 [sym_ppDirective];
   ACTIONS 3 [sym_comment]; ACTIONS 1 [sym_ppFragmentExpr; sym_ppFragmentStmt;
   sym__literalStringMultiline; sym_identifier; sym_kConstref; sym_kOut; sym_kAbsolute;
   sym_kRead; sym_kWrite; sym_kImplements; sym_kDefault; sym_kNodefault; sym_kStored; sym_kIndex;
   sym_kDispId; sym_kObjcclass; sym_kObjccategory; sym_kObjcprotocol; sym_kHelper; sym_kGeneric;
   sym_kSpecialize; sym_kOtherwise; sym_kRaiseAt; sym_kOn; sym_kOperator; sym_kReference;
   sym_kPublished; sym_kPublic; sym_kProtected; sym_kPrivate; sym_kStrict; sym_kRequired;
   sym_kOptional; sym_kForward; sym_kStatic; sym_kVirtual; sym_kAbstract; sym_kSealed;
   sym_kDynamic; sym_kOverride; sym_kOverload; sym_kReintroduce; sym_kStdcall; sym_kCdecl;
   sym_kCppdecl; sym_kPascal; sym_kRegister; sym_kMwpascal; sym_kExternal; sym_kName;
   sym_kMessage; sym_kDeprecated; sym_kExperimental; sym_kPlatform; sym_kUnimplemented;
   sym_kCvar; sym_kExport; sym_kFar; sym_kNear; sym_kSafecall; sym_kAssembler; sym_kNostackframe;
   sym_kInterrupt; sym_kNoreturn; sym_kIocheck; sym_kLocal; sym_kHardfloat; sym_kSoftfloat;
   sym_kMs_abi_default; sym_kMs_abi_cdecl; sym_kSaveregisters; sym_kSysv_abi_default;
   sym_kSysv_abi_cdecl; sym_kVectorcall; sym_kVarargs; sym_kWinapi; sym_kAlias; sym_kDelayed;
   sym_kAnd; sym_kArray; sym_kAs; sym_kAsm; sym_kBegin; sym_kCase; sym_kClass; sym_kConst;
   sym_kConstructor; sym_kDestructor; sym_kDispInterface; sym_kDiv; sym_kDo; sym_kDownto;
   sym_kElse; sym_kEnd; sym_kExcept; sym_kExports; sym_kFile; sym_kFinalization; sym_kFinally;
   sym_kFor; sym_kFunction; sym_kGoto; sym_kIf; sym_kImplementation; sym_kIn; sym_kInherited;
   sym_kInitialization; sym_kInline; sym_kInterface; sym_kIs; sym_kLabel; sym_kLibrary; sym_kMod;
   sym_kNil; sym_kNot; sym_kObject; sym_kOf; sym_kOr; sym_kPacked; sym_kProcedure; sym_kProgram;
   sym_kProperty; sym_kRaise; sym_kRecord; sym_kRepeat; sym_kResourcestring; sym_kSet; sym_kShl;
   sym_kShr; sym_kString; sym_kThen; sym_kThreadvar; sym_kTo; sym_kTry; sym_kType; sym_kUnit;
   sym_kUntil; sym_kUses; sym_kVar; sym_kWhile; sym_kWith; sym_kXor]].

(** State 1. *)
Definition ts_parse_table_1 : parse_row :=
  [STATE 14846 [sym_root]; STATE 15203 [sym_program; sym_library; sym_unit];
   STATE 7031 [sym_blockTr; aux_sym__definitions; sym__definition; sym_defProc; sym_declProcFwd;
   sym_declUses]; STATE 27 [sym__ppIf]; STATE 7031 [sym_ppBlock; sym_declExports; sym_declTypes;
   sym_declVars; sym_declConsts]; STATE 6444 [sym_declProc]; STATE 7031 [sym_declLabels];
   STATE 10350 [sym__declProc]; STATE 10443 [sym__declOperator];
   STATE 11110 [sym_rttiAttributes]; STATE 11216 [aux_sym_rttiAttributes_repeat2];
   ACTIONS 7 [ts_builtin_sym_end]; ACTIONS 9 [anon_sym_LBRACK];
   ACTIONS 11 [aux_sym_ppUsesBlock_token1]; ACTIONS 3 [sym__space]; ACTIONS 5 [sym_ppDirective];
   ACTIONS 3 [sym_comment]; ACTIONS 13 [sym_kGeneric]; ACTIONS 15 [sym_kOperator];
   ACTIONS 17 [sym_kBegin]; ACTIONS 19 [sym_kClass]; ACTIONS 21 [sym_kConst];
   ACTIONS 23 [sym_kConstructor; sym_kDestructor]; ACTIONS 25 [sym_kExports];
   ACTIONS 23 [sym_kFunction]; ACTIONS 27 [sym_kLabel]; ACTIONS 29 [sym_kLibrary];
   ACTIONS 23 [sym_kProcedure]; ACTIONS 31 [sym_kProgram]; ACTIONS 21 [sym_kResourcestring];
   ACTIONS 33 [sym_kThreadvar]; ACTIONS 35 [sym_kType]; ACTIONS 37 [sym_kUnit];
   ACTIONS 39 [sym_kUses]; ACTIONS 33 [sym_kVar]].

(** State 2. *)
Definition ts_parse_table_2 : parse_row :=
  [STATE 1310 [sym_if]; STATE 31 [sym_ifElse; sym_while; sym_repeat; sym_for; sym_foreach;
   sym_try; sym_case; sym_block; sym_asm; sym_with; sym_raise; sym_statement; sym_goto;
   sym__statement]; STATE 15141 [sym_assignment]; STATE 11829 [sym_varAssignDef];
   STATE 15141 [sym_varDef; sym_constDef]; STATE 8220 [sym__expr; sym_exprConditional];
   STATE 7765 [sym__ref; sym_lambda; sym_inherited; sym_exprDot; sym_exprDeref; sym_exprAs;
   sym_exprTpl; sym_exprSubscript; sym_exprCall]; STATE 8220 [sym_exprBinary; sym_exprUnary];
   STATE 7765 [sym_exprParens; sym_exprBrackets]; STATE 12283 [sym_genericDot; sym_genericTpl;
   sym__genericName]; STATE 7765 [sym__literal; sym_literalString];
   STATE 6994 [sym__literalString; sym_literalChar]; STATE 7765 [sym_literalNumber];
   STATE 7888 [sym__literalInt; sym__literalFloat]; STATE 31 [sym_defProc; sym_declProcFwd];
   STATE 13627 [sym__visibility]; STATE 31 [sym_declUses]; STATE 12 [sym__ppIf];
   STATE 52 [sym__ppElse]; STATE 9668 [sym__ppEndIf]; STATE 31 [sym_ppBlock; sym_declExports;
   sym_declTypes; sym_declVars; sym_declConsts; sym_declType]; STATE 58 [sym_declProc];
   STATE 31 [sym_declVar; sym_declConst; sym_declLabels; sym_declField; sym_declProp];
   STATE 1009 [sym__declProc]; STATE 1309 [sym__declOperator]; STATE 2759 [sym_rttiAttributes];
   STATE 13110 [aux_sym_genericArg_repeat1]; STATE 6994 [aux_sym_literalString_repeat1];
   STATE 31 [aux_sym_ppBlock_repeat1]; STATE 12023 [aux_sym_ppBlock_repeat2];
   STATE 5428 [aux_sym_declVar_repeat1]; STATE 2888 [aux_sym_rttiAttributes_repeat2];
   ACTIONS 41 [anon_sym_SEMI]; ACTIONS 43 [anon_sym_COMMA]; ACTIONS 45 [anon_sym_LBRACK];
   ACTIONS 47 [anon_sym_LPAREN]; ACTIONS 49 [aux_sym__literalString_token1];
   ACTIONS 51 [anon_sym_POUND]; ACTIONS 53 [aux_sym__literalInt_token1];
   ACTIONS 55 [aux_sym__literalInt_token2; aux_sym__literalInt_token3];
   ACTIONS 53 [aux_sym__literalFloat_token1]; ACTIONS 11 [aux_sym_ppUsesBlock_token1];
   ACTIONS 57 [aux_sym_ppUsesBlock_token2]; ACTIONS 59 [aux_sym_ppUsesBlock_token3];
   ACTIONS 61 [sym_kAdd; sym_kSub]; ACTIONS 63 [sym_kAt]; ACTIONS 65 [sym_kTrue; sym_kFalse];
   ACTIONS 3 [sym__space]; ACTIONS 5 [sym_ppDirective]; ACTIONS 3 [sym_comment];
   ACTIONS 65 [sym_ppFragmentExpr]; ACTIONS 49 [sym__literalStringMultiline];
   ACTIONS 67 [sym_identifier]; ACTIONS 69 [sym_kDefault; sym_kNodefault; sym_kDispId];
   ACTIONS 71 [sym_kGeneric]; ACTIONS 73 [sym_kSpecialize]; ACTIONS 75 [sym_kOperator];
   ACTIONS 77 [sym_kPublished]; ACTIONS 79 [sym_kPublic]; ACTIONS 77 [sym_kProtected;
   sym_kPrivate]; ACTIONS 81 [sym_kStrict]; ACTIONS 77 [sym_kRequired; sym_kOptional];
   ACTIONS 69 [sym_kStatic; sym_kVirtual; sym_kAbstract; sym_kDynamic; sym_kOverride;
   sym_kOverload; sym_kReintroduce; sym_kStdcall; sym_kCdecl; sym_kCppdecl; sym_kPascal;
   sym_kRegister; sym_kMwpascal; sym_kMessage; sym_kDeprecated; sym_kExperimental; sym_kPlatform;
   sym_kUnimplemented; sym_kCvar; sym_kExport; sym_kFar; sym_kNear; sym_kSafecall;
   sym_kAssembler; sym_kNostackframe; sym_kInterrupt; sym_kNoreturn; sym_kIocheck; sym_kLocal;
   sym_kHardfloat; sym_kSoftfloat; sym_kMs_abi_default; sym_kMs_abi_cdecl; sym_kSaveregisters;
   sym_kSysv_abi_default; sym_kSysv_abi_cdecl; sym_kVectorcall; sym_kVarargs; sym_kWinapi;
   sym_kAlias]; ACTIONS 83 [sym_kAsm]; ACTIONS 85 [sym_kBegin]; ACTIONS 87 [sym_kCase];
   ACTIONS 89 [sym_kClass]; ACTIONS 91 [sym_kConst]; ACTIONS 93 [sym_kConstructor;
   sym_kDestructor]; ACTIONS 95 [sym_kExports]; ACTIONS 97 [sym_kFor];
   ACTIONS 99 [sym_kFunction]; ACTIONS 101 [sym_kGoto]; ACTIONS 103 [sym_kIf];
   ACTIONS 105 [sym_kInherited]; ACTIONS 107 [sym_kLabel]; ACTIONS 65 [sym_kNil];
   ACTIONS 63 [sym_kNot]; ACTIONS 99 [sym_kProcedure]; ACTIONS 109 [sym_kProperty];
   ACTIONS 111 [sym_kRaise]; ACTIONS 113 [sym_kRepeat]; ACTIONS 115 [sym_kResourcestring];
   ACTIONS 117 [sym_kString]; ACTIONS 119 [sym_kThreadvar]; ACTIONS 121 [sym_kTry];
   ACTIONS 123 [sym_kType]; ACTIONS 125 [sym_kUses]; ACTIONS 127 [sym_kVar];
   ACTIONS 129 [sym_kWhile]; ACTIONS 131 [sym_kWith]].

(** State 3. *)
Definition ts_parse_table_3 : parse_row :=
  [STATE 1310 [sym_if]; STATE 43 [sym_ifElse; sym_while; sym_repeat; sym_for; sym_foreach;
   sym_try; sym_case; sym_block; sym_asm; sym_with; sym_raise; sym_statement; sym_goto;
   sym__statement]; STATE 15141 [sym_assignment]; STATE 11829 [sym_varAssignDef];
   STATE 15141 [sym_varDef; sym_constDef]; STATE 8220 [sym__expr; sym_exprConditional];
   STATE 7765 [sym__ref; sym_lambda; sym_inherited; sym_exprDot; sym_exprDeref; sym_exprAs;
   sym_exprTpl; sym_exprSubscript; sym_exprCall]; STATE 8220 [sym_exprBinary; sym_exprUnary];
   STATE 7765 [sym_exprParens; sym_exprBrackets]; STATE 12283 [sym_genericDot; sym_genericTpl;
   sym__genericName]; STATE 7765 [sym__literal; sym_literalString];
   STATE 6994 [sym__literalString; sym_literalChar]; STATE 7765 [sym_literalNumber];
   STATE 7888 [sym__literalInt; sym__literalFloat]; STATE 43 [sym_defProc; sym_declProcFwd];
   STATE 13627 [sym__visibility]; STATE 43 [sym_declUses]; STATE 12 [sym__ppIf];
   STATE 52 [sym__ppElse]; STATE 10105 [sym__ppEndIf]; STATE 43 [sym_ppBlock; sym_declExports;
   sym_declTypes; sym_declVars; sym_declConsts; sym_declType]; STATE 58 [sym_declProc];
   STATE 43 [sym_declVar; sym_declConst; sym_declLabels; sym_declField; sym_declProp];
   STATE 1009 [sym__declProc]; STATE 1309 [sym__declOperator]; STATE 2759 [sym_rttiAttributes];
   STATE 13110 [aux_sym_genericArg_repeat1]; STATE 6994 [aux_sym_literalString_repeat1];
   STATE 43 [aux_sym_ppBlock_repeat1]; STATE 11737 [aux_sym_ppBlock_repeat2];
   STATE 5428 [aux_sym_declVar_repeat1]; STATE 2888 [aux_sym_rttiAttributes_repeat2];
   ACTIONS 41 [anon_sym_SEMI]; ACTIONS 133 [anon_sym_COMMA]; ACTIONS 45 [anon_sym_LBRACK];
   ACTIONS 47 [anon_sym_LPAREN]; ACTIONS 49 [aux_sym__literalString_token1];
   ACTIONS 51 [anon_sym_POUND]; ACTIONS 53 [aux_sym__literalInt_token1];
   ACTIONS 55 [aux_sym__literalInt_token2; aux_sym__literalInt_token3];
   ACTIONS 53 [aux_sym__literalFloat_token1]; ACTIONS 11 [aux_sym_ppUsesBlock_token1];
   ACTIONS 57 [aux_sym_ppUsesBlock_token2]; ACTIONS 135 [aux_sym_ppUsesBlock_token3];
   ACTIONS 61 [sym_kAdd; sym_kSub]; ACTIONS 63 [sym_kAt]; ACTIONS 65 [sym_kTrue; sym_kFalse];
   ACTIONS 3 [sym__space]; ACTIONS 5 [sym_ppDirective]; ACTIONS 3 [sym_comment];
   ACTIONS 65 [sym_ppFragmentExpr]; ACTIONS 49 [sym__literalStringMultiline];
   ACTIONS 67 [sym_identifier]; ACTIONS 69 [sym_kDefault; sym_kNodefault; sym_kDispId];
   ACTIONS 71 [sym_kGeneric]; ACTIONS 73 [sym_kSpecialize]; ACTIONS 75 [sym_kOperator];
   ACTIONS 77 [sym_kPublished]; ACTIONS 79 [sym_kPublic]; ACTIONS 77 [sym_kProtected;
   sym_kPrivate]; ACTIONS 81 [sym_kStrict]; ACTIONS 77 [sym_kRequired; sym_kOptional];
   ACTIONS 69 [sym_kStatic; sym_kVirtual; sym_kAbstract; sym_kDynamic; sym_kOverride;
   sym_kOverload; sym_kReintroduce; sym_kStdcall; sym_kCdecl; sym_kCppdecl; sym_kPascal;
   sym_kRegister; sym_kMwpascal; sym_kMessage; sym_kDeprecated; sym_kExperimental; sym_kPlatform;
   sym_kUnimplemented; sym_kCvar; sym_kExport; sym_kFar; sym_kNear; sym_kSafecall;
   sym_kAssembler; sym_kNostackframe; sym_kInterrupt; sym_kNoreturn; sym_kIocheck; sym_kLocal;
   sym_kHardfloat; sym_kSoftfloat; sym_kMs_abi_default; sym_kMs_abi_cdecl; sym_kSaveregisters;
   sym_kSysv_abi_default; sym_kSysv_abi_cdecl; sym_kVectorcall; sym_kVarargs; sym_kWinapi;
   sym_kAlias]; ACTIONS 83 [sym_kAsm]; ACTIONS 85 [sym_kBegin]; ACTIONS 87 [sym_kCase];
   ACTIONS 89 [sym_kClass]; ACTIONS 91 [sym_kConst]; ACTIONS 93 [sym_kConstructor;
   sym_kDestructor]; ACTIONS 95 [sym_kExports]; ACTIONS 97 [sym_kFor];
   ACTIONS 99 [sym_kFunction]; ACTIONS 101 [sym_kGoto]; ACTIONS 103 [sym_kIf];
   ACTIONS 105 [sym_kInherited]; ACTIONS 107 [sym_kLabel]; ACTIONS 65 [sym_kNil];
   ACTIONS 63 [sym_kNot]; ACTIONS 99 [sym_kProcedure]; ACTIONS 109 [sym_kProperty];
   ACTIONS 111 [sym_kRaise]; ACTIONS 113 [sym_kRepeat]; ACTIONS 115 [sym_kResourcestring];
   ACTIONS 117 [sym_kString]; ACTIONS 119 [sym_kThreadvar]; ACTIONS 121 [sym_kTry];
   ACTIONS 123 [sym_kType]; ACTIONS 125 [sym_kUses]; ACTIONS 127 [sym_kVar];
   ACTIONS 129 [sym_kWhile]; ACTIONS 131 [sym_kWith]].

(** State 4. *)
Definition ts_parse_table_4 : parse_row :=
  [STATE 1310 [sym_if]; STATE 21 [sym_ifElse; sym_while; sym_repeat; sym_for; sym_foreach;
   sym_try; sym_case; sym_block; sym_asm; sym_with; sym_raise; sym_statement; sym_goto;
   sym__statement]; STATE 10364 [sym_blockTr]; STATE 15378 [sym_asmTr];
   STATE 15141 [sym_assignment]; STATE 11829 [sym_varAssignDef]; STATE 15141 [sym_varDef;
   sym_constDef]; STATE 8220 [sym__expr; sym_exprConditional]; STATE 7765 [sym__ref; sym_lambda;
   sym_inherited; sym_exprDot; sym_exprDeref; sym_exprAs; sym_exprTpl; sym_exprSubscript;
   sym_exprCall]; STATE 8220 [sym_exprBinary; sym_exprUnary]; STATE 7765 [sym_exprParens;
   sym_exprBrackets]; STATE 12283 [sym_genericDot; sym_genericTpl; sym__genericName];
   STATE 7765 [sym__literal; sym_literalString]; STATE 6994 [sym__literalString;
   sym_literalChar]; STATE 7765 [sym_literalNumber]; STATE 7888 [sym__literalInt;
   sym__literalFloat]; STATE 6469 [aux_sym__definitions; sym__definition];
   STATE 1369 [sym_defProc]; STATE 11909 [sym__defProcImpl]; STATE 13173 [sym__defProcBody];
   STATE 1369 [sym_declProcFwd; sym_declUses]; STATE 7 [sym__ppIf]; STATE 52 [sym__ppElse];
   STATE 10447 [sym__ppEndIf]; STATE 1369 [sym_ppBlock; sym_declExports; sym_declTypes];
   STATE 1318 [sym_declVars; sym_declConsts]; STATE 21 [sym_declType]; STATE 56 [sym_declProc];
   STATE 21 [sym_declVar; sym_declConst]; STATE 1369 [sym_declLabels]; STATE 21 [sym_declField;
   sym_declProp]; STATE 1009 [sym__declProc]; STATE 1309 [sym__declOperator];
   STATE 2759 [sym_rttiAttributes]; STATE 13110 [aux_sym_genericArg_repeat1];
   STATE 6994 [aux_sym_literalString_repeat1]; STATE 21 [aux_sym_ppBlock_repeat1];
   STATE 11866 [aux_sym_ppBlock_repeat2]; STATE 5428 [aux_sym_declVar_repeat1];
   STATE 2888 [aux_sym_rttiAttributes_repeat2]; ACTIONS 41 [anon_sym_SEMI];
   ACTIONS 137 [anon_sym_COMMA]; ACTIONS 45 [anon_sym_LBRACK]; ACTIONS 47 [anon_sym_LPAREN];
   ACTIONS 49 [aux_sym__literalString_token1]; ACTIONS 51 [anon_sym_POUND];
   ACTIONS 53 [aux_sym__literalInt_token1]; ACTIONS 55 [aux_sym__literalInt_token2;
   aux_sym__literalInt_token3]; ACTIONS 53 [aux_sym__literalFloat_token1];
   ACTIONS 11 [aux_sym_ppUsesBlock_token1]; ACTIONS 57 [aux_sym_ppUsesBlock_token2];
   ACTIONS 139 [aux_sym_ppUsesBlock_token3]; ACTIONS 61 [sym_kAdd; sym_kSub];
   ACTIONS 63 [sym_kAt]; ACTIONS 65 [sym_kTrue; sym_kFalse]; ACTIONS 3 [sym__space];
   ACTIONS 5 [sym_ppDirective]; ACTIONS 3 [sym_comment]; ACTIONS 65 [sym_ppFragmentExpr];
   ACTIONS 49 [sym__literalStringMultiline]; ACTIONS 67 [sym_identifier];
   ACTIONS 69 [sym_kDefault; sym_kNodefault; sym_kDispId]; ACTIONS 71 [sym_kGeneric];
   ACTIONS 73 [sym_kSpecialize]; ACTIONS 75 [sym_kOperator]; ACTIONS 69 [sym_kPublic;
   sym_kStatic; sym_kVirtual; sym_kAbstract; sym_kDynamic; sym_kOverride; sym_kOverload;
   sym_kReintroduce; sym_kStdcall; sym_kCdecl; sym_kCppdecl; sym_kPascal; sym_kRegister;
   sym_kMwpascal; sym_kMessage; sym_kDeprecated; sym_kExperimental; sym_kPlatform;
   sym_kUnimplemented; sym_kCvar; sym_kExport; sym_kFar; sym_kNear; sym_kSafecall;
   sym_kAssembler; sym_kNostackframe; sym_kInterrupt; sym_kNoreturn; sym_kIocheck; sym_kLocal;
   sym_kHardfloat; sym_kSoftfloat; sym_kMs_abi_default; sym_kMs_abi_cdecl; sym_kSaveregisters;
   sym_kSysv_abi_default; sym_kSysv_abi_cdecl; sym_kVectorcall; sym_kVarargs; sym_kWinapi;
   sym_kAlias]; ACTIONS 141 [sym_kAsm]; ACTIONS 143 [sym_kBegin]; ACTIONS 87 [sym_kCase];
   ACTIONS 89 [sym_kClass]; ACTIONS 91 [sym_kConst]; ACTIONS 93 [sym_kConstructor;
   sym_kDestructor]; ACTIONS 95 [sym_kExports]; ACTIONS 97 [sym_kFor];
   ACTIONS 99 [sym_kFunction]; ACTIONS 101 [sym_kGoto]; ACTIONS 103 [sym_kIf];
   ACTIONS 105 [sym_kInherited]; ACTIONS 107 [sym_kLabel]; ACTIONS 65 [sym_kNil];
   ACTIONS 63 [sym_kNot]; ACTIONS 99 [sym_kProcedure]; ACTIONS 109 [sym_kProperty];
   ACTIONS 111 [sym_kRaise]; ACTIONS 113 [sym_kRepeat]; ACTIONS 115 [sym_kResourcestring];
   ACTIONS 117 [sym_kString]; ACTIONS 119 [sym_kThreadvar]; ACTIONS 121 [sym_kTry];
   ACTIONS 123 [sym_kType]; ACTIONS 125 [sym_kUses]; ACTIONS 127 [sym_kVar];
   ACTIONS 129 [sym_kWhile]; ACTIONS 131 [sym_kWith]].

(** State 5. *)
Definition ts_parse_table_5 : parse_row :=
  [STATE 1310 [sym_if]; STATE 21 [sym_ifElse; sym_while; sym_repeat; sym_for; sym_foreach;
   sym_try; sym_case; sym_block; sym_asm; sym_with; sym_raise; sym_statement; sym_goto;
   sym__statement]; STATE 10364 [sym_blockTr]; STATE 15378 [sym_asmTr];
   STATE 15141 [sym_assignment]; STATE 11829 [sym_varAssignDef]; STATE 15141 [sym_varDef;
   sym_constDef]; STATE 8220 [sym__expr; sym_exprConditional]; STATE 7765 [sym__ref; sym_lambda;
   sym_inherited; sym_exprDot; sym_exprDeref; sym_exprAs; sym_exprTpl; sym_exprSubscript;
   sym_exprCall]; STATE 8220 [sym_exprBinary; sym_exprUnary]; STATE 7765 [sym_exprParens;
   sym_exprBrackets]; STATE 12283 [sym_genericDot; sym_genericTpl; sym__genericName];
   STATE 7765 [sym__literal; sym_literalString]; STATE 6994 [sym__literalString;
   sym_literalChar]; STATE 7765 [sym_literalNumber]; STATE 7888 [sym__literalInt;
   sym__literalFloat]; STATE 6469 [aux_sym__definitions; sym__definition];
   STATE 1369 [sym_defProc]; STATE 11922 [sym__defProcImpl]; STATE 13173 [sym__defProcBody];
   STATE 1369 [sym_declProcFwd; sym_declUses]; STATE 7 [sym__ppIf]; STATE 52 [sym__ppElse];
   STATE 10447 [sym__ppEndIf]; STATE 1369 [sym_ppBlock; sym_declExports; sym_declTypes];
   STATE 1318 [sym_declVars; sym_declConsts]; STATE 21 [sym_declType]; STATE 56 [sym_declProc];
   STATE 21 [sym_declVar; sym_declConst]; STATE 1369 [sym_declLabels]; STATE 21 [sym_declField;
   sym_declProp]; STATE 1009 [sym__declProc]; STATE 1309 [sym__declOperator];
   STATE 2759 [sym_rttiAttributes]; STATE 13110 [aux_sym_genericArg_repeat1];
   STATE 6994 [aux_sym_literalString_repeat1]; STATE 21 [aux_sym_ppBlock_repeat1];
   STATE 11866 [aux_sym_ppBlock_repeat2]; STATE 5428 [aux_sym_declVar_repeat1];
   STATE 2888 [aux_sym_rttiAttributes_repeat2]; ACTIONS 41 [anon_sym_SEMI];
   ACTIONS 137 [anon_sym_COMMA]; ACTIONS 45 [anon_sym_LBRACK]; ACTIONS 47 [anon_sym_LPAREN];
   ACTIONS 49 [aux_sym__literalString_token1]; ACTIONS 51 [anon_sym_POUND];
   ACTIONS 53 [aux_sym__literalInt_token1]; ACTIONS 55 [aux_sym__literalInt_token2;
   aux_sym__literalInt_token3]; ACTIONS 53 [aux_sym__literalFloat_token1];
   ACTIONS 11 [aux_sym_ppUsesBlock_token1]; ACTIONS 57 [aux_sym_ppUsesBlock_token2];
   ACTIONS 139 [aux_sym_ppUsesBlock_token3]; ACTIONS 61 [sym_kAdd; sym_kSub];
   ACTIONS 63 [sym_kAt]; ACTIONS 65 [sym_kTrue; sym_kFalse]; ACTIONS 3 [sym__space];
   ACTIONS 5 [sym_ppDirective]; ACTIONS 3 [sym_comment]; ACTIONS 65 [sym_ppFragmentExpr];
   ACTIONS 49 [sym__literalStringMultiline]; ACTIONS 67 [sym_identifier];
   ACTIONS 69 [sym_kDefault; sym_kNodefault; sym_kDispId]; ACTIONS 71 [sym_kGeneric];
   ACTIONS 73 [sym_kSpecialize]; ACTIONS 75 [sym_kOperator]; ACTIONS 69 [sym_kPublic;
   sym_kStatic; sym_kVirtual; sym_kAbstract; sym_kDynamic; sym_kOverride; sym_kOverload;
   sym_kReintroduce; sym_kStdcall; sym_kCdecl; sym_kCppdecl; sym_kPascal; sym_kRegister;
   sym_kMwpascal; sym_kMessage; sym_kDeprecated; sym_kExperimental; sym_kPlatform;
   sym_kUnimplemented; sym_kCvar; sym_kExport; sym_kFar; sym_kNear; sym_kSafecall;
   sym_kAssembler; sym_kNostackframe; sym_kInterrupt; sym_kNoreturn; sym_kIocheck; sym_kLocal;
   sym_kHardfloat; sym_kSoftfloat; sym_kMs_abi_default; sym_kMs_abi_cdecl; sym_kSaveregisters;
   sym_kSysv_abi_default; sym_kSysv_abi_cdecl; sym_kVectorcall; sym_kVarargs; sym_kWinapi;
   sym_kAlias]; ACTIONS 141 [sym_kAsm]; ACTIONS 143 [sym_kBegin]; ACTIONS 87 [sym_kCase];
   ACTIONS 89 [sym_kClass]; ACTIONS 91 [sym_kConst]; ACTIONS 93 [sym_kConstructor;
   sym_kDestructor]; ACTIONS 95 [sym_kExports]; ACTIONS 97 [sym_kFor];
   ACTIONS 99 [sym_kFunction]; ACTIONS 101 [sym_kGoto]; ACTIONS 103 [sym_kIf];
   ACTIONS 105 [sym_kInherited]; ACTIONS 107 [sym_kLabel]; ACTIONS 65 [sym_kNil];
   ACTIONS 63 [sym_kNot]; ACTIONS 99 [sym_kProcedure]; ACTIONS 109 [sym_kProperty];
   ACTIONS 111 [sym_kRaise]; ACTIONS 113 [sym_kRepeat]; ACTIONS 115 [sym_kResourcestring];
   ACTIONS 117 [sym_kString]; ACTIONS 119 [sym_kThreadvar]; ACTIONS 121 [sym_kTry];
   ACTIONS 123 [sym_kType]; ACTIONS 125 [sym_kUses]; ACTIONS 127 [sym_kVar];
   ACTIONS 129 [sym_kWhile]; ACTIONS 131 [sym_kWith]].

(** State 6. *)
Definition ts_parse_table_6 : parse_row :=
  [STATE 1310 [sym_if]; STATE 21 [sym_ifElse; sym_while; sym_repeat; sym_for; sym_foreach;
   sym_try; sym_case; sym_block; sym_asm; sym_with; sym_raise; sym_statement; sym_goto;
   sym__statement]; STATE 10364 [sym_blockTr]; STATE 15378 [sym_asmTr];
   STATE 15141 [sym_assignment]; STATE 11829 [sym_varAssignDef]; STATE 15141 [sym_varDef;
   sym_constDef]; STATE 8220 [sym__expr; sym_exprConditional]; STATE 7765 [sym__ref; sym_lambda;
   sym_inherited; sym_exprDot; sym_exprDeref; sym_exprAs; sym_exprTpl; sym_exprSubscript;
   sym_exprCall]; STATE 8220 [sym_exprBinary; sym_exprUnary]; STATE 7765 [sym_exprParens;
   sym_exprBrackets]; STATE 12283 [sym_genericDot; sym_genericTpl; sym__genericName];
   STATE 7765 [sym__literal; sym_literalString]; STATE 6994 [sym__literalString;
   sym_literalChar]; STATE 7765 [sym_literalNumber]; STATE 7888 [sym__literalInt;
   sym__literalFloat]; STATE 6469 [aux_sym__definitions; sym__definition];
   STATE 1369 [sym_defProc]; STATE 11999 [sym__defProcImpl]; STATE 13173 [sym__defProcBody];
   STATE 1369 [sym_declProcFwd; sym_declUses]; STATE 7 [sym__ppIf]; STATE 52 [sym__ppElse];
   STATE 10447 [sym__ppEndIf]; STATE 1369 [sym_ppBlock; sym_declExports; sym_declTypes];
   STATE 1318 [sym_declVars; sym_declConsts]; STATE 21 [sym_declType]; STATE 56 [sym_declProc];
   STATE 21 [sym_declVar; sym_declConst]; STATE 1369 [sym_declLabels]; STATE 21 [sym_declField;
   sym_declProp]; STATE 1009 [sym__declProc]; STATE 1309 [sym__declOperator];
   STATE 2759 [sym_rttiAttributes]; STATE 13110 [aux_sym_genericArg_repeat1];
   STATE 6994 [aux_sym_literalString_repeat1]; STATE 21 [aux_sym_ppBlock_repeat1];
   STATE 11866 [aux_sym_ppBlock_repeat2]; STATE 5428 [aux_sym_declVar_repeat1];
   STATE 2888 [aux_sym_rttiAttributes_repeat2]; ACTIONS 41 [anon_sym_SEMI];
   ACTIONS 137 [anon_sym_COMMA]; ACTIONS 45 [anon_sym_LBRACK]; ACTIONS 47 [anon_sym_LPAREN];
   ACTIONS 49 [aux_sym__literalString_token1]; ACTIONS 51 [anon_sym_POUND];
   ACTIONS 53 [aux_sym__literalInt_token1]; ACTIONS 55 [aux_sym__literalInt_token2;
   aux_sym__literalInt_token3]; ACTIONS 53 [aux_sym__literalFloat_token1];
   ACTIONS 11 [aux_sym_ppUsesBlock_token1]; ACTIONS 57 [aux_sym_ppUsesBlock_token2];
   ACTIONS 139 [aux_sym_ppUsesBlock_token3]; ACTIONS 61 [sym_kAdd; sym_kSub];
   ACTIONS 63 [sym_kAt]; ACTIONS 65 [sym_kTrue; sym_kFalse]; ACTIONS 3 [sym__space];
   ACTIONS 5 [sym_ppDirective]; ACTIONS 3 [sym_comment]; ACTIONS 65 [sym_ppFragmentExpr];
   ACTIONS 49 [sym__literalStringMultiline]; ACTIONS 67 [sym_identifier];
   ACTIONS 69 [sym_kDefault; sym_kNodefault; sym_kDispId]; ACTIONS 71 [sym_kGeneric];
   ACTIONS 73 [sym_kSpecialize]; ACTIONS 75 [sym_kOperator]; ACTIONS 69 [sym_kPublic;
   sym_kStatic; sym_kVirtual; sym_kAbstract; sym_kDynamic; sym_kOverride; sym_kOverload;
   sym_kReintroduce; sym_kStdcall; sym_kCdecl; sym_kCppdecl; sym_kPascal; sym_kRegister;
   sym_kMwpascal; sym_kMessage; sym_kDeprecated; sym_kExperimental; sym_kPlatform;
   sym_kUnimplemented; sym_kCvar; sym_kExport; sym_kFar; sym_kNear; sym_kSafecall;
   sym_kAssembler; sym_kNostackframe; sym_kInterrupt; sym_kNoreturn; sym_kIocheck; sym_kLocal;
   sym_kHardfloat; sym_kSoftfloat; sym_kMs_abi_default; sym_kMs_abi_cdecl; sym_kSaveregisters;
   sym_kSysv_abi_default; sym_kSysv_abi_cdecl; sym_kVectorcall; sym_kVarargs; sym_kWinapi;
   sym_kAlias]; ACTIONS 141 [sym_kAsm]; ACTIONS 143 [sym_kBegin]; ACTIONS 87 [sym_kCase];
   ACTIONS 89 [sym_kClass]; ACTIONS 91 [sym_kConst]; ACTIONS 93 [sym_kConstructor;
   sym_kDestructor]; ACTIONS 95 [sym_kExports]; ACTIONS 97 [sym_kFor];
   ACTIONS 99 [sym_kFunction]; ACTIONS 101 [sym_kGoto]; ACTIONS 103 [sym_kIf];
   ACTIONS 105 [sym_kInherited]; ACTIONS 107 [sym_kLabel]; ACTIONS 65 [sym_kNil];
   ACTIONS 63 [sym_kNot]; ACTIONS 99 [sym_kProcedure]; ACTIONS 109 [sym_kProperty];
   ACTIONS 111 [sym_kRaise]; ACTIONS 113 [sym_kRepeat]; ACTIONS 115 [sym_kResourcestring];
   ACTIONS 117 [sym_kString]; ACTIONS 119 [sym_kThreadvar]; ACTIONS 121 [sym_kTry];
   ACTIONS 123 [sym_kType]; ACTIONS 125 [sym_kUses]; ACTIONS 127 [sym_kVar];
   ACTIONS 129 [sym_kWhile]; ACTIONS 131 [sym_kWith]].

(** State 7. *)
Definition ts_parse_table_7 : parse_row :=
  [STATE 1310 [sym_if]; STATE 18 [sym_ifElse; sym_while; sym_repeat; sym_for; sym_foreach;
   sym_try; sym_case; sym_block; sym_asm; sym_with; sym_raise; sym_statement; sym_goto;
   sym__statement]; STATE 10364 [sym_blockTr]; STATE 15378 [sym_asmTr];
   STATE 15141 [sym_assignment]; STATE 11829 [sym_varAssignDef]; STATE 15141 [sym_varDef;
   sym_constDef]; STATE 8220 [sym__expr; sym_exprConditional]; STATE 7765 [sym__ref; sym_lambda;
   sym_inherited; sym_exprDot; sym_exprDeref; sym_exprAs; sym_exprTpl; sym_exprSubscript;
   sym_exprCall]; STATE 8220 [sym_exprBinary; sym_exprUnary]; STATE 7765 [sym_exprParens;
   sym_exprBrackets]; STATE 12283 [sym_genericDot; sym_genericTpl; sym__genericName];
   STATE 7765 [sym__literal; sym_literalString]; STATE 6994 [sym__literalString;
   sym_literalChar]; STATE 7765 [sym_literalNumber]; STATE 7888 [sym__literalInt;
   sym__literalFloat]; STATE 6469 [aux_sym__definitions; sym__definition];
   STATE 1369 [sym_defProc]; STATE 11909 [sym__defProcImpl]; STATE 13173 [sym__defProcBody];
   STATE 1369 [sym_declProcFwd; sym_declUses]; STATE 7 [sym__ppIf]; STATE 52 [sym__ppElse];
   STATE 1347 [sym__ppEndIf]; STATE 1369 [sym_ppBlock; sym_declExports; sym_declTypes];
   STATE 1318 [sym_declVars; sym_declConsts]; STATE 18 [sym_declType]; STATE 55 [sym_declProc];
   STATE 18 [sym_declVar; sym_declConst]; STATE 1369 [sym_declLabels]; STATE 18 [sym_declField;
   sym_declProp]; STATE 1009 [sym__declProc]; STATE 1309 [sym__declOperator];
   STATE 2759 [sym_rttiAttributes]; STATE 13110 [aux_sym_genericArg_repeat1];
   STATE 6994 [aux_sym_literalString_repeat1]; STATE 18 [aux_sym_ppBlock_repeat1];
   STATE 11753 [aux_sym_ppBlock_repeat2]; STATE 5428 [aux_sym_declVar_repeat1];
   STATE 2888 [aux_sym_rttiAttributes_repeat2]; ACTIONS 41 [anon_sym_SEMI];
   ACTIONS 145 [anon_sym_COMMA]; ACTIONS 45 [anon_sym_LBRACK]; ACTIONS 47 [anon_sym_LPAREN];
   ACTIONS 49 [aux_sym__literalString_token1]; ACTIONS 51 [anon_sym_POUND];
   ACTIONS 53 [aux_sym__literalInt_token1]; ACTIONS 55 [aux_sym__literalInt_token2;
   aux_sym__literalInt_token3]; ACTIONS 53 [aux_sym__literalFloat_token1];
   ACTIONS 11 [aux_sym_ppUsesBlock_token1]; ACTIONS 57 [aux_sym_ppUsesBlock_token2];
   ACTIONS 147 [aux_sym_ppUsesBlock_token3]; ACTIONS 61 [sym_kAdd; sym_kSub];
   ACTIONS 63 [sym_kAt]; ACTIONS 65 [sym_kTrue; sym_kFalse]; ACTIONS 3 [sym__space];
   ACTIONS 5 [sym_ppDirective]; ACTIONS 3 [sym_comment]; ACTIONS 65 [sym_ppFragmentExpr];
   ACTIONS 49 [sym__literalStringMultiline]; ACTIONS 67 [sym_identifier];
   ACTIONS 69 [sym_kDefault; sym_kNodefault; sym_kDispId]; ACTIONS 71 [sym_kGeneric];
   ACTIONS 73 [sym_kSpecialize]; ACTIONS 75 [sym_kOperator]; ACTIONS 69 [sym_kPublic;
   sym_kStatic; sym_kVirtual; sym_kAbstract; sym_kDynamic; sym_kOverride; sym_kOverload;
   sym_kReintroduce; sym_kStdcall; sym_kCdecl; sym_kCppdecl; sym_kPascal; sym_kRegister;
   sym_kMwpascal; sym_kMessage; sym_kDeprecated; sym_kExperimental; sym_kPlatform;
   sym_kUnimplemented; sym_kCvar; sym_kExport; sym_kFar; sym_kNear; sym_kSafecall;
   sym_kAssembler; sym_kNostackframe; sym_kInterrupt; sym_kNoreturn; sym_kIocheck; sym_kLocal;
   sym_kHardfloat; sym_kSoftfloat; sym_kMs_abi_default; sym_kMs_abi_cdecl; sym_kSaveregisters;
   sym_kSysv_abi_default; sym_kSysv_abi_cdecl; sym_kVectorcall; sym_kVarargs; sym_kWinapi;
   sym_kAlias]; ACTIONS 141 [sym_kAsm]; ACTIONS 143 [sym_kBegin]; ACTIONS 87 [sym_kCase];
   ACTIONS 89 [sym_kClass]; ACTIONS 91 [sym_kConst]; ACTIONS 93 [sym_kConstructor;
   sym_kDestructor]; ACTIONS 95 [sym_kExports]; ACTIONS 97 [sym_kFor];
   ACTIONS 99 [sym_kFunction]; ACTIONS 101 [sym_kGoto]; ACTIONS 103 [sym_kIf];
   ACTIONS 105 [sym_kInherited]; ACTIONS 107 [sym_kLabel]; ACTIONS 65 [sym_kNil];
   ACTIONS 63 [sym_kNot]; ACTIONS 99 [sym_kProcedure]; ACTIONS 109 [sym_kProperty];
   ACTIONS 111 [sym_kRaise]; ACTIONS 113 [sym_kRepeat]; ACTIONS 115 [sym_kResourcestring];
   ACTIONS 117 [sym_kString]; ACTIONS 119 [sym_kThreadvar]; ACTIONS 121 [sym_kTry];
   ACTIONS 123 [sym_kType]; ACTIONS 125 [sym_kUses]; ACTIONS 127 [sym_kVar];
   ACTIONS 129 [sym_kWhile]; ACTIONS 131 [sym_kWith]].

(** State 8. *)
Definition ts_parse_table_8 : parse_row :=
  [STATE 1310 [sym_if]; STATE 21 [sym_ifElse; sym_while; sym_repeat; sym_for; sym_foreach;
   sym_try; sym_case; sym_block; sym_asm; sym_with; sym_raise; sym_statement; sym_goto;
   sym__statement]; STATE 10364 [sym_blockTr]; STATE 15378 [sym_asmTr];
   STATE 15141 [sym_assignment]; STATE 11829 [sym_varAssignDef]; STATE 15141 [sym_varDef;
   sym_constDef]; STATE 8220 [sym__expr; sym_exprConditional]; STATE 7765 [sym__ref; sym_lambda;
   sym_inherited; sym_exprDot; sym_exprDeref; sym_exprAs; sym_exprTpl; sym_exprSubscript;
   sym_exprCall]; STATE 8220 [sym_exprBinary; sym_exprUnary]; STATE 7765 [sym_exprParens;
   sym_exprBrackets]; STATE 12283 [sym_genericDot; sym_genericTpl; sym__genericName];
   STATE 7765 [sym__literal; sym_literalString]; STATE 6994 [sym__literalString;
   sym_literalChar]; STATE 7765 [sym_literalNumber]; STATE 7888 [sym__literalInt;
   sym__literalFloat]; STATE 6469 [aux_sym__definitions; sym__definition];
   STATE 1369 [sym_defProc]; STATE 11755 [sym__defProcImpl]; STATE 13173 [sym__defProcBody];
   STATE 1369 [sym_declProcFwd; sym_declUses]; STATE 7 [sym__ppIf]; STATE 52 [sym__ppElse];
   STATE 10447 [sym__ppEndIf]; STATE 1369 [sym_ppBlock; sym_declExports; sym_declTypes];
   STATE 1318 [sym_declVars; sym_declConsts]; STATE 21 [sym_declType]; STATE 56 [sym_declProc];
   STATE 21 [sym_declVar; sym_declConst]; STATE 1369 [sym_declLabels]; STATE 21 [sym_declField;
   sym_declProp]; STATE 1009 [sym__declProc]; STATE 1309 [sym__declOperator];
   STATE 2759 [sym_rttiAttributes]; STATE 13110 [aux_sym_genericArg_repeat1];
   STATE 6994 [aux_sym_literalString_repeat1]; STATE 21 [aux_sym_ppBlock_repeat1];
   STATE 11866 [aux_sym_ppBlock_repeat2]; STATE 5428 [aux_sym_declVar_repeat1];
   STATE 2888 [aux_sym_rttiAttributes_repeat2]; ACTIONS 41 [anon_sym_SEMI];
   ACTIONS 137 [anon_sym_COMMA]; ACTIONS 45 [anon_sym_LBRACK]; ACTIONS 47 [anon_sym_LPAREN];
   ACTIONS 49 [aux_sym__literalString_token1]; ACTIONS 51 [anon_sym_POUND];
   ACTIONS 53 [aux_sym__literalInt_token1]; ACTIONS 55 [aux_sym__literalInt_token2;
   aux_sym__literalInt_token3]; ACTIONS 53 [aux_sym__literalFloat_token1];
   ACTIONS 11 [aux_sym_ppUsesBlock_token1]; ACTIONS 57 [aux_sym_ppUsesBlock_token2];
   ACTIONS 139 [aux_sym_ppUsesBlock_token3]; ACTIONS 61 [sym_kAdd; sym_kSub];
   ACTIONS 63 [sym_kAt]; ACTIONS 65 [sym_kTrue; sym_kFalse]; ACTIONS 3 [sym__space];
   ACTIONS 5 [sym_ppDirective]; ACTIONS 3 [sym_comment]; ACTIONS 65 [sym_ppFragmentExpr];
   ACTIONS 49 [sym__literalStringMultiline]; ACTIONS 67 [sym_identifier];
   ACTIONS 69 [sym_kDefault; sym_kNodefault; sym_kDispId]; ACTIONS 71 [sym_kGeneric];
   ACTIONS 73 [sym_kSpecialize]; ACTIONS 75 [sym_kOperator]; ACTIONS 69 [sym_kPublic;
   sym_kStatic; sym_kVirtual; sym_kAbstract; sym_kDynamic; sym_kOverride; sym_kOverload;
   sym_kReintroduce; sym_kStdcall; sym_kCdecl; sym_kCppdecl; sym_kPascal; sym_kRegister;
   sym_kMwpascal; sym_kMessage; sym_kDeprecated; sym_kExperimental; sym_kPlatform;
   sym_kUnimplemented; sym_kCvar; sym_kExport; sym_kFar; sym_kNear; sym_kSafecall;
   sym_kAssembler; sym_kNostackframe; sym_kInterrupt; sym_kNoreturn; sym_kIocheck; sym_kLocal;
   sym_kHardfloat; sym_kSoftfloat; sym_kMs_abi_default; sym_kMs_abi_cdecl; sym_kSaveregisters;
   sym_kSysv_abi_default; sym_kSysv_abi_cdecl; sym_kVectorcall; sym_kVarargs; sym_kWinapi;
   sym_kAlias]; ACTIONS 141 [sym_kAsm]; ACTIONS 143 [sym_kBegin]; ACTIONS 87 [sym_kCase];
   ACTIONS 89 [sym_kClass]; ACTIONS 91 [sym_kConst]; ACTIONS 93 [sym_kConstructor;
   sym_kDestructor]; ACTIONS 95 [sym_kExports]; ACTIONS 97 [sym_kFor];
   ACTIONS 99 [sym_kFunction]; ACTIONS 101 [sym_kGoto]; ACTIONS 103 [sym_kIf];
   ACTIONS 105 [sym_kInherited]; ACTIONS 107 [sym_kLabel]; ACTIONS 65 [sym_kNil];
   ACTIONS 63 [sym_kNot]; ACTIONS 99 [sym_kProcedure]; ACTIONS 109 [sym_kProperty];
   ACTIONS 111 [sym_kRaise]; ACTIONS 113 [sym_kRepeat]; ACTIONS 115 [sym_kResourcestring];
   ACTIONS 117 [sym_kString]; ACTIONS 119 [sym_kThreadvar]; ACTIONS 121 [sym_kTry];
   ACTIONS 123 [sym_kType]; ACTIONS 125 [sym_kUses]; ACTIONS 127 [sym_kVar];
   ACTIONS 129 [sym_kWhile]; ACTIONS 131 [sym_kWith]].

(** State 9. *)
Definition ts_parse_table_9 : parse_row :=
  [STATE 1310 [sym_if]; STATE 21 [sym_ifElse; sym_while; sym_repeat; sym_for; sym_foreach;
   sym_try; sym_case; sym_block; sym_asm; sym_with; sym_raise; sym_statement; sym_goto;
   sym__statement]; STATE 10364 [sym_blockTr]; STATE 15378 [sym_asmTr];
   STATE 15141 [sym_assignment]; STATE 11829 [sym_varAssignDef]; STATE 15141 [sym_varDef;
   sym_constDef]; STATE 8220 [sym__expr; sym_exprConditional]; STATE 7765 [sym__ref; sym_lambda;
   sym_inherited; sym_exprDot; sym_exprDeref; sym_exprAs; sym_exprTpl; sym_exprSubscript;
   sym_exprCall]; STATE 8220 [sym_exprBinary; sym_exprUnary]; STATE 7765 [sym_exprParens;
   sym_exprBrackets]; STATE 12283 [sym_genericDot; sym_genericTpl; sym__genericName];
   STATE 7765 [sym__literal; sym_literalString]; STATE 6994 [sym__literalString;
   sym_literalChar]; STATE 7765 [sym_literalNumber]; STATE 7888 [sym__literalInt;
   sym__literalFloat]; STATE 6469 [aux_sym__definitions; sym__definition];
   STATE 1369 [sym_defProc]; STATE 12049 [sym__defProcImpl]; STATE 13173 [sym__defProcBody];
   STATE 1369 [sym_declProcFwd; sym_declUses]; STATE 7 [sym__ppIf]; STATE 52 [sym__ppElse];
   STATE 10447 [sym__ppEndIf]; STATE 1369 [sym_ppBlock; sym_declExports; sym_declTypes];
   STATE 1318 [sym_declVars; sym_declConsts]; STATE 21 [sym_declType]; STATE 56 [sym_declProc];
   STATE 21 [sym_declVar; sym_declConst]; STATE 1369 [sym_declLabels]; STATE 21 [sym_declField;
   sym_declProp]; STATE 1009 [sym__declProc]; STATE 1309 [sym__declOperator];
   STATE 2759 [sym_rttiAttributes]; STATE 13110 [aux_sym_genericArg_repeat1];
   STATE 6994 [aux_sym_literalString_repeat1]; STATE 21 [aux_sym_ppBlock_repeat1];
   STATE 11866 [aux_sym_ppBlock_repeat2]; STATE 5428 [aux_sym_declVar_repeat1];
   STATE 2888 [aux_sym_rttiAttributes_repeat2]; ACTIONS 41 [anon_sym_SEMI];
   ACTIONS 137 [anon_sym_COMMA]; ACTIONS 45 [anon_sym_LBRACK]; ACTIONS 47 [anon_sym_LPAREN];
   ACTIONS 49 [aux_sym__literalString_token1]; ACTIONS 51 [anon_sym_POUND];
   ACTIONS 53 [aux_sym__literalInt_token1]; ACTIONS 55 [aux_sym__literalInt_token2;
   aux_sym__literalInt_token3]; ACTIONS 53 [aux_sym__literalFloat_token1];
   ACTIONS 11 [aux_sym_ppUsesBlock_token1]; ACTIONS 57 [aux_sym_ppUsesBlock_token2];
   ACTIONS 139 [aux_sym_ppUsesBlock_token3]; ACTIONS 61 [sym_kAdd; sym_kSub];
   ACTIONS 63 [sym_kAt]; ACTIONS 65 [sym_kTrue; sym_kFalse]; ACTIONS 3 [sym__space];
   ACTIONS 5 [sym_ppDirective]; ACTIONS 3 [sym_comment]; ACTIONS 65 [sym_ppFragmentExpr];
   ACTIONS 49 [sym__literalStringMultiline]; ACTIONS 67 [sym_identifier];
   ACTIONS 69 [sym_kDefault; sym_kNodefault; sym_kDispId]; ACTIONS 71 [sym_kGeneric];
   ACTIONS 73 [sym_kSpecialize]; ACTIONS 75 [sym_kOperator]; ACTIONS 69 [sym_kPublic;
   sym_kStatic; sym_kVirtual; sym_kAbstract; sym_kDynamic; sym_kOverride; sym_kOverload;
   sym_kReintroduce; sym_kStdcall; sym_kCdecl; sym_kCppdecl; sym_kPascal; sym_kRegister;
   sym_kMwpascal; sym_kMessage; sym_kDeprecated; sym_kExperimental; sym_kPlatform;
   sym_kUnimplemented; sym_kCvar; sym_kExport; sym_kFar; sym_kNear; sym_kSafecall;
   sym_kAssembler; sym_kNostackframe; sym_kInterrupt; sym_kNoreturn; sym_kIocheck; sym_kLocal;
   sym_kHardfloat; sym_kSoftfloat; sym_kMs_abi_default; sym_kMs_abi_cdecl; sym_kSaveregisters;
   sym_kSysv_abi_default; sym_kSysv_abi_cdecl; sym_kVectorcall; sym_kVarargs; sym_kWinapi;
   sym_kAlias]; ACTIONS 141 [sym_kAsm]; ACTIONS 143 [sym_kBegin]; ACTIONS 87 [sym_kCase];
   ACTIONS 89 [sym_kClass]; ACTIONS 91 [sym_kConst]; ACTIONS 93 [sym_kConstructor;
   sym_kDestructor]; ACTIONS 95 [sym_kExports]; ACTIONS 97 [sym_kFor];
   ACTIONS 99 [sym_kFunction]; ACTIONS 101 [sym_kGoto]; ACTIONS 103 [sym_kIf];
   ACTIONS 105 [sym_kInherited]; ACTIONS 107 [sym_kLabel]; ACTIONS 65 [sym_kNil];
   ACTIONS 63 [sym_kNot]; ACTIONS 99 [sym_kProcedure]; ACTIONS 109 [sym_kProperty];
   ACTIONS 111 [sym_kRaise]; ACTIONS 113 [sym_kRepeat]; ACTIONS 115 [sym_kResourcestring];
   ACTIONS 117 [sym_kString]; ACTIONS 119 [sym_kThreadvar]; ACTIONS 121 [sym_kTry];
   ACTIONS 123 [sym_kType]; ACTIONS 125 [sym_kUses]; ACTIONS 127 [sym_kVar];
   ACTIONS 129 [sym_kWhile]; ACTIONS 131 [sym_kWith]].

(** State 10. *)
Definition ts_parse_table_10 : parse_row :=
  [STATE 1310 [sym_if]; STATE 21 [sym_ifElse; sym_while; sym_repeat; sym_for; sym_foreach;
   sym_try; sym_case; sym_block; sym_asm; sym_with; sym_raise; sym_statement; sym_goto;
   sym__statement]; STATE 10364 [sym_blockTr]; STATE 15378 [sym_asmTr];
   STATE 15141 [sym_assignment]; STATE 11829 [sym_varAssignDef]; STATE 15141 [sym_varDef;
   sym_constDef]; STATE 8220 [sym__expr; sym_exprConditional]; STATE 7765 [sym__ref; sym_lambda;
   sym_inherited; sym_exprDot; sym_exprDeref; sym_exprAs; sym_exprTpl; sym_exprSubscript;
   sym_exprCall]; STATE 8220 [sym_exprBinary; sym_exprUnary]; STATE 7765 [sym_exprParens;
   sym_exprBrackets]; STATE 12283 [sym_genericDot; sym_genericTpl; sym__genericName];
   STATE 7765 [sym__literal; sym_literalString]; STATE 6994 [sym__literalString;
   sym_literalChar]; STATE 7765 [sym_literalNumber]; STATE 7888 [sym__literalInt;
   sym__literalFloat]; STATE 6469 [aux_sym__definitions; sym__definition];
   STATE 1369 [sym_defProc]; STATE 11868 [sym__defProcImpl]; STATE 13173 [sym__defProcBody];
   STATE 1369 [sym_declProcFwd; sym_declUses]; STATE 7 [sym__ppIf]; STATE 52 [sym__ppElse];
   STATE 10447 [sym__ppEndIf]; STATE 1369 [sym_ppBlock; sym_declExports; sym_declTypes];
   STATE 1318 [sym_declVars; sym_declConsts]; STATE 21 [sym_declType]; STATE 56 [sym_declProc];
   STATE 21 [sym_declVar; sym_declConst]; STATE 1369 [sym_declLabels]; STATE 21 [sym_declField;
   sym_declProp]; STATE 1009 [sym__declProc]; STATE 1309 [sym__declOperator];
   STATE 2759 [sym_rttiAttributes]; STATE 13110 [aux_sym_genericArg_repeat1];
   STATE 6994 [aux_sym_literalString_repeat1]; STATE 21 [aux_sym_ppBlock_repeat1];
   STATE 11866 [aux_sym_ppBlock_repeat2]; STATE 5428 [aux_sym_declVar_repeat1];
   STATE 2888 [aux_sym_rttiAttributes_repeat2]; ACTIONS 41 [anon_sym_SEMI];
   ACTIONS 137 [anon_sym_COMMA]; ACTIONS 45 [anon_sym_LBRACK]; ACTIONS 47 [anon_sym_LPAREN];
   ACTIONS 49 [aux_sym__literalString_token1]; ACTIONS 51 [anon_sym_POUND];
   ACTIONS 53 [aux_sym__literalInt_token1]; ACTIONS 55 [aux_sym__literalInt_token2;
   aux_sym__literalInt_token3]; ACTIONS 53 [aux_sym__literalFloat_token1];
   ACTIONS 11 [aux_sym_ppUsesBlock_token1]; ACTIONS 57 [aux_sym_ppUsesBlock_token2];
   ACTIONS 139 [aux_sym_ppUsesBlock_token3]; ACTIONS 61 [sym_kAdd; sym_kSub];
   ACTIONS 63 [sym_kAt]; ACTIONS 65 [sym_kTrue; sym_kFalse]; ACTIONS 3 [sym__space];
   ACTIONS 5 [sym_ppDirective]; ACTIONS 3 [sym_comment]; ACTIONS 65 [sym_ppFragmentExpr];
   ACTIONS 49 [sym__literalStringMultiline]; ACTIONS 67 [sym_identifier];
   ACTIONS 69 [sym_kDefault; sym_kNodefault; sym_kDispId]; ACTIONS 71 [sym_kGeneric];
   ACTIONS 73 [sym_kSpecialize]; ACTIONS 75 [sym_kOperator]; ACTIONS 69 [sym_kPublic;
   sym_kStatic; sym_kVirtual; sym_kAbstract; sym_kDynamic; sym_kOverride; sym_kOverload;
   sym_kReintroduce; sym_kStdcall; sym_kCdecl; sym_kCppdecl; sym_kPascal; sym_kRegister;
   sym_kMwpascal; sym_kMessage; sym_kDeprecated; sym_kExperimental; sym_kPlatform;
   sym_kUnimplemented; sym_kCvar; sym_kExport; sym_kFar; sym_kNear; sym_kSafecall;
   sym_kAssembler; sym_kNostackframe; sym_kInterrupt; sym_kNoreturn; sym_kIocheck; sym_kLocal;
   sym_kHardfloat; sym_kSoftfloat; sym_kMs_abi_default; sym_kMs_abi_cdecl; sym_kSaveregisters;
   sym_kSysv_abi_default; sym_kSysv_abi_cdecl; sym_kVectorcall; sym_kVarargs; sym_kWinapi;
   sym_kAlias]; ACTIONS 141 [sym_kAsm]; ACTIONS 143 [sym_kBegin]; ACTIONS 87 [sym_kCase];
   ACTIONS 89 [sym_kClass]; ACTIONS 91 [sym_kConst]; ACTIONS 93 [sym_kConstructor;
   sym_kDestructor]; ACTIONS 95 [sym_kExports]; ACTIONS 97 [sym_kFor];
   ACTIONS 99 [sym_kFunction]; ACTIONS 101 [sym_kGoto]; ACTIONS 103 [sym_kIf];
   ACTIONS 105 [sym_kInherited]; ACTIONS 107 [sym_kLabel]; ACTIONS 65 [sym_kNil];
   ACTIONS 63 [sym_kNot]; ACTIONS 99 [sym_kProcedure]; ACTIONS 109 [sym_kProperty];
   ACTIONS 111 [sym_kRaise]; ACTIONS 113 [sym_kRepeat]; ACTIONS 115 [sym_kResourcestring];
   ACTIONS 117 [sym_kString]; ACTIONS 119 [sym_kThreadvar]; ACTIONS 121 [sym_kTry];
   ACTIONS 123 [sym_kType]; ACTIONS 125 [sym_kUses]; ACTIONS 127 [sym_kVar];
   ACTIONS 129 [sym_kWhile]; ACTIONS 131 [sym_kWith]].

(** State 11. *)
Definition ts_parse_table_11 : parse_row :=
  [STATE 1310 [sym_if]; STATE 51 [sym_ifElse; sym_while; sym_repeat; sym_for; sym_foreach;
   sym_try; sym_case; sym_block; sym_asm; sym_with; sym_raise; sym_statement; sym_goto;
   sym__statement]; STATE 15141 [sym_assignment]; STATE 11829 [sym_varAssignDef];
   STATE 15141 [sym_varDef; sym_constDef]; STATE 8220 [sym__expr; sym_exprConditional];
   STATE 7765 [sym__ref; sym_lambda; sym_inherited; sym_exprDot; sym_exprDeref; sym_exprAs;
   sym_exprTpl; sym_exprSubscript; sym_exprCall]; STATE 8220 [sym_exprBinary; sym_exprUnary];
   STATE 7765 [sym_exprParens; sym_exprBrackets]; STATE 12283 [sym_genericDot; sym_genericTpl;
   sym__genericName]; STATE 7765 [sym__literal; sym_literalString];
   STATE 6994 [sym__literalString; sym_literalChar]; STATE 7765 [sym_literalNumber];
   STATE 7888 [sym__literalInt; sym__literalFloat]; STATE 51 [sym_defProc; sym_declProcFwd;
   sym_declUses]; STATE 12 [sym__ppIf]; STATE 52 [sym__ppElse]; STATE 10381 [sym__ppEndIf];
   STATE 51 [sym_ppBlock; sym_declExports; sym_declTypes; sym_declVars; sym_declConsts;
   sym_declType]; STATE 58 [sym_declProc]; STATE 51 [sym_declVar; sym_declConst; sym_declLabels;
   sym_declField; sym_declProp]; STATE 1009 [sym__declProc]; STATE 1309 [sym__declOperator];
   STATE 2759 [sym_rttiAttributes]; STATE 13110 [aux_sym_genericArg_repeat1];
   STATE 6994 [aux_sym_literalString_repeat1]; STATE 51 [aux_sym_ppBlock_repeat1];
   STATE 11920 [aux_sym_ppBlock_repeat2]; STATE 5428 [aux_sym_declVar_repeat1];
   STATE 2888 [aux_sym_rttiAttributes_repeat2]; ACTIONS 41 [anon_sym_SEMI];
   ACTIONS 149 [anon_sym_COMMA]; ACTIONS 45 [anon_sym_LBRACK]; ACTIONS 47 [anon_sym_LPAREN];
   ACTIONS 49 [aux_sym__literalString_token1]; ACTIONS 51 [anon_sym_POUND];
   ACTIONS 53 [aux_sym__literalInt_token1]; ACTIONS 55 [aux_sym__literalInt_token2;
   aux_sym__literalInt_token3]; ACTIONS 53 [aux_sym__literalFloat_token1];
   ACTIONS 11 [aux_sym_ppUsesBlock_token1]; ACTIONS 57 [aux_sym_ppUsesBlock_token2];
   ACTIONS 151 [aux_sym_ppUsesBlock_token3]; ACTIONS 61 [sym_kAdd; sym_kSub];
   ACTIONS 63 [sym_kAt]; ACTIONS 65 [sym_kTrue; sym_kFalse]; ACTIONS 3 [sym__space];
   ACTIONS 5 [sym_ppDirective]; ACTIONS 3 [sym_comment]; ACTIONS 65 [sym_ppFragmentExpr];
   ACTIONS 49 [sym__literalStringMultiline]; ACTIONS 67 [sym_identifier];
   ACTIONS 69 [sym_kDefault; sym_kNodefault; sym_kDispId]; ACTIONS 71 [sym_kGeneric];
   ACTIONS 73 [sym_kSpecialize]; ACTIONS 75 [sym_kOperator]; ACTIONS 69 [sym_kPublic;
   sym_kStatic; sym_kVirtual; sym_kAbstract; sym_kDynamic; sym_kOverride; sym_kOverload;
   sym_kReintroduce; sym_kStdcall; sym_kCdecl; sym_kCppdecl; sym_kPascal; sym_kRegister;
   sym_kMwpascal; sym_kMessage; sym_kDeprecated; sym_kExperimental; sym_kPlatform;
   sym_kUnimplemented; sym_kCvar; sym_kExport; sym_kFar; sym_kNear; sym_kSafecall;
   sym_kAssembler; sym_kNostackframe; sym_kInterrupt; sym_kNoreturn; sym_kIocheck; sym_kLocal;
   sym_kHardfloat; sym_kSoftfloat; sym_kMs_abi_default; sym_kMs_abi_cdecl; sym_kSaveregisters;
   sym_kSysv_abi_default; sym_kSysv_abi_cdecl; sym_kVectorcall; sym_kVarargs; sym_kWinapi;
   sym_kAlias]; ACTIONS 83 [sym_kAsm]; ACTIONS 85 [sym_kBegin]; ACTIONS 87 [sym_kCase];
   ACTIONS 89 [sym_kClass]; ACTIONS 91 [sym_kConst]; ACTIONS 93 [sym_kConstructor;
   sym_kDestructor]; ACTIONS 95 [sym_kExports]; ACTIONS 97 [sym_kFor];
   ACTIONS 99 [sym_kFunction]; ACTIONS 101 [sym_kGoto]; ACTIONS 103 [sym_kIf];
   ACTIONS 105 [sym_kInherited]; ACTIONS 107 [sym_kLabel]; ACTIONS 65 [sym_kNil];
   ACTIONS 63 [sym_kNot]; ACTIONS 99 [sym_kProcedure]; ACTIONS 109 [sym_kProperty];
   ACTIONS 111 [sym_kRaise]; ACTIONS 113 [sym_kRepeat]; ACTIONS 115 [sym_kResourcestring];
   ACTIONS 117 [sym_kString]; ACTIONS 119 [sym_kThreadvar]; ACTIONS 121 [sym_kTry];
   ACTIONS 123 [sym_kType]; ACTIONS 125 [sym_kUses]; ACTIONS 127 [sym_kVar];
   ACTIONS 129 [sym_kWhile]; ACTIONS 131 [sym_kWith]].

(** State 12. *)
Definition ts_parse_table_12 : parse_row :=
  [STATE 1310 [sym_if]; STATE 18 [sym_ifElse; sym_while; sym_repeat; sym_for; sym_foreach;
   sym_try; sym_case; sym_block; sym_asm; sym_with; sym_raise; sym_statement; sym_goto;
   sym__statement]; STATE 15141 [sym_assignment]; STATE 11829 [sym_varAssignDef];
   STATE 15141 [sym_varDef; sym_constDef]; STATE 8220 [sym__expr; sym_exprConditional];
   STATE 7765 [sym__ref; sym_lambda; sym_inherited; sym_exprDot; sym_exprDeref; sym_exprAs;
   sym_exprTpl; sym_exprSubscript; sym_exprCall]; STATE 8220 [sym_exprBinary; sym_exprUnary];
   STATE 7765 [sym_exprParens; sym_exprBrackets]; STATE 12283 [sym_genericDot; sym_genericTpl;
   sym__genericName]; STATE 7765 [sym__literal; sym_literalString];
   STATE 6994 [sym__literalString; sym_literalChar]; STATE 7765 [sym_literalNumber];
   STATE 7888 [sym__literalInt; sym__literalFloat]; STATE 18 [sym_defProc; sym_declProcFwd;
   sym_declUses]; STATE 12 [sym__ppIf]; STATE 52 [sym__ppElse]; STATE 1347 [sym__ppEndIf];
   STATE 18 [sym_ppBlock; sym_declExports; sym_declTypes; sym_declVars; sym_declConsts;
   sym_declType]; STATE 55 [sym_declProc]; STATE 18 [sym_declVar; sym_declConst; sym_declLabels;
   sym_declField; sym_declProp]; STATE 1009 [sym__declProc]; STATE 1309 [sym__declOperator];
   STATE 2759 [sym_rttiAttributes]; STATE 13110 [aux_sym_genericArg_repeat1];
   STATE 6994 [aux_sym_literalString_repeat1]; STATE 18 [aux_sym_ppBlock_repeat1];
   STATE 11753 [aux_sym_ppBlock_repeat2]; STATE 5428 [aux_sym_declVar_repeat1];
   STATE 2888 [aux_sym_rttiAttributes_repeat2]; ACTIONS 41 [anon_sym_SEMI];
   ACTIONS 145 [anon_sym_COMMA]; ACTIONS 45 [anon_sym_LBRACK]; ACTIONS 47 [anon_sym_LPAREN];
   ACTIONS 49 [aux_sym__literalString_token1]; ACTIONS 51 [anon_sym_POUND];
   ACTIONS 53 [aux_sym__literalInt_token1]; ACTIONS 55 [aux_sym__literalInt_token2;
   aux_sym__literalInt_token3]; ACTIONS 53 [aux_sym__literalFloat_token1];
   ACTIONS 11 [aux_sym_ppUsesBlock_token1]; ACTIONS 57 [aux_sym_ppUsesBlock_token2];
   ACTIONS 147 [aux_sym_ppUsesBlock_token3]; ACTIONS 61 [sym_kAdd; sym_kSub];
   ACTIONS 63 [sym_kAt]; ACTIONS 65 [sym_kTrue; sym_kFalse]; ACTIONS 3 [sym__space];
   ACTIONS 5 [sym_ppDirective]; ACTIONS 3 [sym_comment]; ACTIONS 65 [sym_ppFragmentExpr];
   ACTIONS 49 [sym__literalStringMultiline]; ACTIONS 67 [sym_identifier];
   ACTIONS 69 [sym_kDefault; sym_kNodefault; sym_kDispId]; ACTIONS 71 [sym_kGeneric];
   ACTIONS 73 [sym_kSpecialize]; ACTIONS 75 [sym_kOperator]; ACTIONS 69 [sym_kPublic;
   sym_kStatic; sym_kVirtual; sym_kAbstract; sym_kDynamic; sym_kOverride; sym_kOverload;
   sym_kReintroduce; sym_kStdcall; sym_kCdecl; sym_kCppdecl; sym_kPascal; sym_kRegister;
   sym_kMwpascal; sym_kMessage; sym_kDeprecated; sym_kExperimental; sym_kPlatform;
   sym_kUnimplemented; sym_kCvar; sym_kExport; sym_kFar; sym_kNear; sym_kSafecall;
   sym_kAssembler; sym_kNostackframe; sym_kInterrupt; sym_kNoreturn; sym_kIocheck; sym_kLocal;
   sym_kHardfloat; sym_kSoftfloat; sym_kMs_abi_default; sym_kMs_abi_cdecl; sym_kSaveregisters;
   sym_kSysv_abi_default; sym_kSysv_abi_cdecl; sym_kVectorcall; sym_kVarargs; sym_kWinapi;
   sym_kAlias]; ACTIONS 83 [sym_kAsm]; ACTIONS 85 [sym_kBegin]; ACTIONS 87 [sym_kCase];
   ACTIONS 89 [sym_kClass]; ACTIONS 91 [sym_kConst]; ACTIONS 93 [sym_kConstructor;
   sym_kDestructor]; ACTIONS 95 [sym_kExports]; ACTIONS 97 [sym_kFor];
   ACTIONS 99 [sym_kFunction]; ACTIONS 101 [sym_kGoto]; ACTIONS 103 [sym_kIf];
   ACTIONS 105 [sym_kInherited]; ACTIONS 107 [sym_kLabel]; ACTIONS 65 [sym_kNil];
   ACTIONS 63 [sym_kNot]; ACTIONS 99 [sym_kProcedure]; ACTIONS 109 [sym_kProperty];
   ACTIONS 111 [sym_kRaise]; ACTIONS 113 [sym_kRepeat]; ACTIONS 115 [sym_kResourcestring];
   ACTIONS 117 [sym_kString]; ACTIONS 119 [sym_kThreadvar]; ACTIONS 121 [sym_kTry];
   ACTIONS 123 [sym_kType]; ACTIONS 125 [sym_kUses]; ACTIONS 127 [sym_kVar];
   ACTIONS 129 [sym_kWhile]; ACTIONS 131 [sym_kWith]].

(** State 13. *)
Definition ts_parse_table_13 : parse_row :=
  [STATE 1310 [sym_if]; STATE 15 [sym_ifElse; sym_while; sym_repeat; sym_for; sym_foreach;
   sym_try; sym_case; sym_block; sym_asm; sym_with; sym_raise; sym_statement; sym_goto;
   sym__statement]; STATE 15141 [sym_assignment]; STATE 11829 [sym_varAssignDef];
   STATE 15141 [sym_varDef; sym_constDef]; STATE 8220 [sym__expr; sym_exprConditional];
   STATE 7765 [sym__ref; sym_lambda; sym_inherited; sym_exprDot; sym_exprDeref; sym_exprAs;
   sym_exprTpl; sym_exprSubscript; sym_exprCall]; STATE 8220 [sym_exprBinary; sym_exprUnary];
   STATE 7765 [sym_exprParens; sym_exprBrackets]; STATE 12283 [sym_genericDot; sym_genericTpl;
   sym__genericName]; STATE 7765 [sym__literal; sym_literalString];
   STATE 6994 [sym__literalString; sym_literalChar]; STATE 7765 [sym_literalNumber];
   STATE 7888 [sym__literalInt; sym__literalFloat]; STATE 15 [sym_defProc; sym_declProcFwd;
   sym_declUses]; STATE 12 [sym__ppIf]; STATE 52 [sym__ppElse]; STATE 2730 [sym__ppEndIf];
   STATE 15 [sym_ppBlock; sym_declExports; sym_declTypes; sym_declVars; sym_declConsts;
   sym_declType]; STATE 58 [sym_declProc]; STATE 15 [sym_declVar; sym_declConst; sym_declLabels;
   sym_declField; sym_declProp]; STATE 1009 [sym__declProc]; STATE 1309 [sym__declOperator];
   STATE 2759 [sym_rttiAttributes]; STATE 13110 [aux_sym_genericArg_repeat1];
   STATE 6994 [aux_sym_literalString_repeat1]; STATE 15 [aux_sym_ppBlock_repeat1];
   STATE 11901 [aux_sym_ppBlock_repeat2]; STATE 5428 [aux_sym_declVar_repeat1];
   STATE 2888 [aux_sym_rttiAttributes_repeat2]; ACTIONS 41 [anon_sym_SEMI];
   ACTIONS 153 [anon_sym_COMMA]; ACTIONS 45 [anon_sym_LBRACK]; ACTIONS 47 [anon_sym_LPAREN];
   ACTIONS 49 [aux_sym__literalString_token1]; ACTIONS 51 [anon_sym_POUND];
   ACTIONS 53 [aux_sym__literalInt_token1]; ACTIONS 55 [aux_sym__literalInt_token2;
   aux_sym__literalInt_token3]; ACTIONS 53 [aux_sym__literalFloat_token1];
   ACTIONS 11 [aux_sym_ppUsesBlock_token1]; ACTIONS 57 [aux_sym_ppUsesBlock_token2];
   ACTIONS 155 [aux_sym_ppUsesBlock_token3]; ACTIONS 61 [sym_kAdd; sym_kSub];
   ACTIONS 63 [sym_kAt]; ACTIONS 65 [sym_kTrue; sym_kFalse]; ACTIONS 3 [sym__space];
   ACTIONS 5 [sym_ppDirective]; ACTIONS 3 [sym_comment]; ACTIONS 65 [sym_ppFragmentExpr];
   ACTIONS 49 [sym__literalStringMultiline]; ACTIONS 67 [sym_identifier];
   ACTIONS 69 [sym_kDefault; sym_kNodefault; sym_kDispId]; ACTIONS 71 [sym_kGeneric];
   ACTIONS 73 [sym_kSpecialize]; ACTIONS 75 [sym_kOperator]; ACTIONS 69 [sym_kPublic;
   sym_kStatic; sym_kVirtual; sym_kAbstract; sym_kDynamic; sym_kOverride; sym_kOverload;
   sym_kReintroduce; sym_kStdcall; sym_kCdecl; sym_kCppdecl; sym_kPascal; sym_kRegister;
   sym_kMwpascal; sym_kMessage; sym_kDeprecated; sym_kExperimental; sym_kPlatform;
   sym_kUnimplemented; sym_kCvar; sym_kExport; sym_kFar; sym_kNear; sym_kSafecall;
   sym_kAssembler; sym_kNostackframe; sym_kInterrupt; sym_kNoreturn; sym_kIocheck; sym_kLocal;
   sym_kHardfloat; sym_kSoftfloat; sym_kMs_abi_default; sym_kMs_abi_cdecl; sym_kSaveregisters;
   sym_kSysv_abi_default; sym_kSysv_abi_cdecl; sym_kVectorcall; sym_kVarargs; sym_kWinapi;
   sym_kAlias]; ACTIONS 83 [sym_kAsm]; ACTIONS 85 [sym_kBegin]; ACTIONS 87 [sym_kCase];
   ACTIONS 89 [sym_kClass]; ACTIONS 91 [sym_kConst]; ACTIONS 93 [sym_kConstructor;
   sym_kDestructor]; ACTIONS 95 [sym_kExports]; ACTIONS 97 [sym_kFor];
   ACTIONS 99 [sym_kFunction]; ACTIONS 101 [sym_kGoto]; ACTIONS 103 [sym_kIf];
   ACTIONS 105 [sym_kInherited]; ACTIONS 107 [sym_kLabel]; ACTIONS 65 [sym_kNil];
   ACTIONS 63 [sym_kNot]; ACTIONS 99 [sym_kProcedure]; ACTIONS 109 [sym_kProperty];
   ACTIONS 111 [sym_kRaise]; ACTIONS 113 [sym_kRepeat]; ACTIONS 115 [sym_kResourcestring];
   ACTIONS 117 [sym_kString]; ACTIONS 119 [sym_kThreadvar]; ACTIONS 121 [sym_kTry];
   ACTIONS 123 [sym_kType]; ACTIONS 125 [sym_kUses]; ACTIONS 127 [sym_kVar];
   ACTIONS 129 [sym_kWhile]; ACTIONS 131 [sym_kWith]].

(** State 14. *)
Definition ts_parse_table_14 : parse_row :=
  [STATE 1310 [sym_if]; STATE 51 [sym_ifElse; sym_while; sym_repeat; sym_for; sym_foreach;
   sym_try; sym_case; sym_block; sym_asm; sym_with; sym_raise; sym_statement; sym_goto;
   sym__statement]; STATE 15141 [sym_assignment]; STATE 11829 [sym_varAssignDef];
   STATE 15141 [sym_varDef; sym_constDef]; STATE 8220 [sym__expr; sym_exprConditional];
   STATE 7765 [sym__ref; sym_lambda; sym_inherited; sym_exprDot; sym_exprDeref; sym_exprAs;
   sym_exprTpl; sym_exprSubscript; sym_exprCall]; STATE 8220 [sym_exprBinary; sym_exprUnary];
   STATE 7765 [sym_exprParens; sym_exprBrackets]; STATE 12283 [sym_genericDot; sym_genericTpl;
   sym__genericName]; STATE 7765 [sym__literal; sym_literalString];
   STATE 6994 [sym__literalString; sym_literalChar]; STATE 7765 [sym_literalNumber];
   STATE 7888 [sym__literalInt; sym__literalFloat]; STATE 51 [sym_defProc; sym_declProcFwd;
   sym_declUses]; STATE 12 [sym__ppIf]; STATE 52 [sym__ppElse]; STATE 10467 [sym__ppEndIf];
   STATE 51 [sym_ppBlock; sym_declExports; sym_declTypes; sym_declVars; sym_declConsts;
   sym_declType]; STATE 58 [sym_declProc]; STATE 51 [sym_declVar; sym_declConst; sym_declLabels;
   sym_declField; sym_declProp]; STATE 1009 [sym__declProc]; STATE 1309 [sym__declOperator];
   STATE 2759 [sym_rttiAttributes]; STATE 13110 [aux_sym_genericArg_repeat1];
   STATE 6994 [aux_sym_literalString_repeat1]; STATE 51 [aux_sym_ppBlock_repeat1];
   STATE 11998 [aux_sym_ppBlock_repeat2]; STATE 5428 [aux_sym_declVar_repeat1];
   STATE 2888 [aux_sym_rttiAttributes_repeat2]; ACTIONS 41 [anon_sym_SEMI];
   ACTIONS 149 [anon_sym_COMMA]; ACTIONS 45 [anon_sym_LBRACK]; ACTIONS 47 [anon_sym_LPAREN];
   ACTIONS 49 [aux_sym__literalString_token1]; ACTIONS 51 [anon_sym_POUND];
   ACTIONS 53 [aux_sym__literalInt_token1]; ACTIONS 55 [aux_sym__literalInt_token2;
   aux_sym__literalInt_token3]; ACTIONS 53 [aux_sym__literalFloat_token1];
   ACTIONS 11 [aux_sym_ppUsesBlock_token1]; ACTIONS 57 [aux_sym_ppUsesBlock_token2];
   ACTIONS 157 [aux_sym_ppUsesBlock_token3]; ACTIONS 61 [sym_kAdd; sym_kSub];
   ACTIONS 63 [sym_kAt]; ACTIONS 65 [sym_kTrue; sym_kFalse]; ACTIONS 3 [sym__space];
   ACTIONS 5 [sym_ppDirective]; ACTIONS 3 [sym_comment]; ACTIONS 65 [sym_ppFragmentExpr];
   ACTIONS 49 [sym__literalStringMultiline]; ACTIONS 67 [sym_identifier];
   ACTIONS 69 [sym_kDefault; sym_kNodefault; sym_kDispId]; ACTIONS 71 [sym_kGeneric];
   ACTIONS 73 [sym_kSpecialize]; ACTIONS 75 [sym_kOperator]; ACTIONS 69 [sym_kPublic;
   sym_kStatic; sym_kVirtual; sym_kAbstract; sym_kDynamic; sym_kOverride; sym_kOverload;
   sym_kReintroduce; sym_kStdcall; sym_kCdecl; sym_kCppdecl; sym_kPascal; sym_kRegister;
   sym_kMwpascal; sym_kMessage; sym_kDeprecated; sym_kExperimental; sym_kPlatform;
   sym_kUnimplemented; sym_kCvar; sym_kExport; sym_kFar; sym_kNear; sym_kSafecall;
   sym_kAssembler; sym_kNostackframe; sym_kInterrupt; sym_kNoreturn; sym_kIocheck; sym_kLocal;
   sym_kHardfloat; sym_kSoftfloat; sym_kMs_abi_default; sym_kMs_abi_cdecl; sym_kSaveregisters;
   sym_kSysv_abi_default; sym_kSysv_abi_cdecl; sym_kVectorcall; sym_kVarargs; sym_kWinapi;
   sym_kAlias]; ACTIONS 83 [sym_kAsm]; ACTIONS 85 [sym_kBegin]; ACTIONS 87 [sym_kCase];
   ACTIONS 89 [sym_kClass]; ACTIONS 91 [sym_kConst]; ACTIONS 93 [sym_kConstructor;
   sym_kDestructor]; ACTIONS 95 [sym_kExports]; ACTIONS 97 [sym_kFor];
   ACTIONS 99 [sym_kFunction]; ACTIONS 101 [sym_kGoto]; ACTIONS 103 [sym_kIf];
   ACTIONS 105 [sym_kInherited]; ACTIONS 107 [sym_kLabel]; ACTIONS 65 [sym_kNil];
   ACTIONS 63 [sym_kNot]; ACTIONS 99 [sym_kProcedure]; ACTIONS 109 [sym_kProperty];
   ACTIONS 111 [sym_kRaise]; ACTIONS 113 [sym_kRepeat]; ACTIONS 115 [sym_kResourcestring];
   ACTIONS 117 [sym_kString]; ACTIONS 119 [sym_kThreadvar]; ACTIONS 121 [sym_kTry];
   ACTIONS 123 [sym_kType]; ACTIONS 125 [sym_kUses]; ACTIONS 127 [sym_kVar];
   ACTIONS 129 [sym_kWhile]; ACTIONS 131 [sym_kWith]].

(** State 15. *)
Definition ts_parse_table_15 : parse_row :=
  [STATE 1310 [sym_if]; STATE 51 [sym_ifElse; sym_while; sym_repeat; sym_for; sym_foreach;
   sym_try; sym_case; sym_block; sym_asm; sym_with; sym_raise; sym_statement; sym_goto;
   sym__statement]; STATE 15141 [sym_assignment]; STATE 11829 [sym_varAssignDef];
   STATE 15141 [sym_varDef; sym_constDef]; STATE 8220 [sym__expr; sym_exprConditional];
   STATE 7765 [sym__ref; sym_lambda; sym_inherited; sym_exprDot; sym_exprDeref; sym_exprAs;
   sym_exprTpl; sym_exprSubscript; sym_exprCall]; STATE 8220 [sym_exprBinary; sym_exprUnary];
   STATE 7765 [sym_exprParens; sym_exprBrackets]; STATE 12283 [sym_genericDot; sym_genericTpl;
   sym__genericName]; STATE 7765 [sym__literal; sym_literalString];
   STATE 6994 [sym__literalString; sym_literalChar]; STATE 7765 [sym_literalNumber];
   STATE 7888 [sym__literalInt; sym__literalFloat]; STATE 51 [sym_defProc; sym_declProcFwd;
   sym_declUses]; STATE 12 [sym__ppIf]; STATE 52 [sym__ppElse]; STATE 2682 [sym__ppEndIf];
   STATE 51 [sym_ppBlock; sym_declExports; sym_declTypes; sym_declVars; sym_declConsts;
   sym_declType]; STATE 58 [sym_declProc]; STATE 51 [sym_declVar; sym_declConst; sym_declLabels;
   sym_declField; sym_declProp]; STATE 1009 [sym__declProc]; STATE 1309 [sym__declOperator];
   STATE 2759 [sym_rttiAttributes]; STATE 13110 [aux_sym_genericArg_repeat1];
   STATE 6994 [aux_sym_literalString_repeat1]; STATE 51 [aux_sym_ppBlock_repeat1];
   STATE 11906 [aux_sym_ppBlock_repeat2]; STATE 5428 [aux_sym_declVar_repeat1];
   STATE 2888 [aux_sym_rttiAttributes_repeat2]; ACTIONS 41 [anon_sym_SEMI];
   ACTIONS 149 [anon_sym_COMMA]; ACTIONS 45 [anon_sym_LBRACK]; ACTIONS 47 [anon_sym_LPAREN];
   ACTIONS 49 [aux_sym__literalString_token1]; ACTIONS 51 [anon_sym_POUND];
   ACTIONS 53 [aux_sym__literalInt_token1]; ACTIONS 55 [aux_sym__literalInt_token2;
   aux_sym__literalInt_token3]; ACTIONS 53 [aux_sym__literalFloat_token1];
   ACTIONS 11 [aux_sym_ppUsesBlock_token1]; ACTIONS 57 [aux_sym_ppUsesBlock_token2];
   ACTIONS 155 [aux_sym_ppUsesBlock_token3]; ACTIONS 61 [sym_kAdd; sym_kSub];
   ACTIONS 63 [sym_kAt]; ACTIONS 65 [sym_kTrue; sym_kFalse]; ACTIONS 3 [sym__space];
   ACTIONS 5 [sym_ppDirective]; ACTIONS 3 [sym_comment]; ACTIONS 65 [sym_ppFragmentExpr];
   ACTIONS 49 [sym__literalStringMultiline]; ACTIONS 67 [sym_identifier];
   ACTIONS 69 [sym_kDefault; sym_kNodefault; sym_kDispId]; ACTIONS 71 [sym_kGeneric];
   ACTIONS 73 [sym_kSpecialize]; ACTIONS 75 [sym_kOperator]; ACTIONS 69 [sym_kPublic;
   sym_kStatic; sym_kVirtual; sym_kAbstract; sym_kDynamic; sym_kOverride; sym_kOverload;
   sym_kReintroduce; sym_kStdcall; sym_kCdecl; sym_kCppdecl; sym_kPascal; sym_kRegister;
   sym_kMwpascal; sym_kMessage; sym_kDeprecated; sym_kExperimental; sym_kPlatform;
   sym_kUnimplemented; sym_kCvar; sym_kExport; sym_kFar; sym_kNear; sym_kSafecall;
   sym_kAssembler; sym_kNostackframe; sym_kInterrupt; sym_kNoreturn; sym_kIocheck; sym_kLocal;
   sym_kHardfloat; sym_kSoftfloat; sym_kMs_abi_default; sym_kMs_abi_cdecl; sym_kSaveregisters;
   sym_kSysv_abi_default; sym_kSysv_abi_cdecl; sym_kVectorcall; sym_kVarargs; sym_kWinapi;
   sym_kAlias]; ACTIONS 83 [sym_kAsm]; ACTIONS 85 [sym_kBegin]; ACTIONS 87 [sym_kCase];
   ACTIONS 89 [sym_kClass]; ACTIONS 91 [sym_kConst]; ACTIONS 93 [sym_kConstructor;
   sym_kDestructor]; ACTIONS 95 [sym_kExports]; ACTIONS 97 [sym_kFor];
   ACTIONS 99 [sym_kFunction]; ACTIONS 101 [sym_kGoto]; ACTIONS 103 [sym_kIf];
   ACTIONS 105 [sym_kInherited]; ACTIONS 107 [sym_kLabel]; ACTIONS 65 [sym_kNil];
   ACTIONS 63 [sym_kNot]; ACTIONS 99 [sym_kProcedure]; ACTIONS 109 [sym_kProperty];
   ACTIONS 111 [sym_kRaise]; ACTIONS 113 [sym_kRepeat]; ACTIONS 115 [sym_kResourcestring];
   ACTIONS 117 [sym_kString]; ACTIONS 119 [sym_kThreadvar]; ACTIONS 121 [sym_kTry];
   ACTIONS 123 [sym_kType]; ACTIONS 125 [sym_kUses]; ACTIONS 127 [sym_kVar];
   ACTIONS 129 [sym_kWhile]; ACTIONS 131 [sym_kWith]].

(** State 16. *)
Definition ts_parse_table_16 : parse_row :=
  [STATE 1310 [sym_if]; STATE 21 [sym_ifElse; sym_while; sym_repeat; sym_for; sym_foreach;
   sym_try; sym_case; sym_block; sym_asm; sym_with; sym_raise; sym_statement; sym_goto;
   sym__statement]; STATE 15141 [sym_assignment]; STATE 11829 [sym_varAssignDef];
   STATE 15141 [sym_varDef; sym_constDef]; STATE 8220 [sym__expr; sym_exprConditional];
   STATE 7765 [sym__ref; sym_lambda; sym_inherited; sym_exprDot; sym_exprDeref; sym_exprAs;
   sym_exprTpl; sym_exprSubscript; sym_exprCall]; STATE 8220 [sym_exprBinary; sym_exprUnary];
   STATE 7765 [sym_exprParens; sym_exprBrackets]; STATE 12283 [sym_genericDot; sym_genericTpl;
   sym__genericName]; STATE 7765 [sym__literal; sym_literalString];
   STATE 6994 [sym__literalString; sym_literalChar]; STATE 7765 [sym_literalNumber];
   STATE 7888 [sym__literalInt; sym__literalFloat]; STATE 21 [sym_defProc; sym_declProcFwd;
   sym_declUses]; STATE 12 [sym__ppIf]; STATE 52 [sym__ppElse]; STATE 10447 [sym__ppEndIf];
   STATE 21 [sym_ppBlock; sym_declExports; sym_declTypes; sym_declVars; sym_declConsts;
   sym_declType]; STATE 56 [sym_declProc]; STATE 21 [sym_declVar; sym_declConst; sym_declLabels;
   sym_declField; sym_declProp]; STATE 1009 [sym__declProc]; STATE 1309 [sym__declOperator];
   STATE 2759 [sym_rttiAttributes]; STATE 13110 [aux_sym_genericArg_repeat1];
   STATE 6994 [aux_sym_literalString_repeat1]; STATE 21 [aux_sym_ppBlock_repeat1];
   STATE 11866 [aux_sym_ppBlock_repeat2]; STATE 5428 [aux_sym_declVar_repeat1];
   STATE 2888 [aux_sym_rttiAttributes_repeat2]; ACTIONS 41 [anon_sym_SEMI];
   ACTIONS 137 [anon_sym_COMMA]; ACTIONS 45 [anon_sym_LBRACK]; ACTIONS 47 [anon_sym_LPAREN];
   ACTIONS 49 [aux_sym__literalString_token1]; ACTIONS 51 [anon_sym_POUND];
   ACTIONS 53 [aux_sym__literalInt_token1]; ACTIONS 55 [aux_sym__literalInt_token2;
   aux_sym__literalInt_token3]; ACTIONS 53 [aux_sym__literalFloat_token1];
   ACTIONS 11 [aux_sym_ppUsesBlock_token1]; ACTIONS 57 [aux_sym_ppUsesBlock_token2];
   ACTIONS 139 [aux_sym_ppUsesBlock_token3]; ACTIONS 61 [sym_kAdd; sym_kSub];
   ACTIONS 63 [sym_kAt]; ACTIONS 65 [sym_kTrue; sym_kFalse]; ACTIONS 3 [sym__space];
   ACTIONS 5 [sym_ppDirective]; ACTIONS 3 [sym_comment]; ACTIONS 65 [sym_ppFragmentExpr];
   ACTIONS 49 [sym__literalStringMultiline]; ACTIONS 67 [sym_identifier];
   ACTIONS 69 [sym_kDefault; sym_kNodefault; sym_kDispId]; ACTIONS 71 [sym_kGeneric];
   ACTIONS 73 [sym_kSpecialize]; ACTIONS 75 [sym_kOperator]; ACTIONS 69 [sym_kPublic;
   sym_kStatic; sym_kVirtual; sym_kAbstract; sym_kDynamic; sym_kOverride; sym_kOverload;
   sym_kReintroduce; sym_kStdcall; sym_kCdecl; sym_kCppdecl; sym_kPascal; sym_kRegister;
   sym_kMwpascal; sym_kMessage; sym_kDeprecated; sym_kExperimental; sym_kPlatform;
   sym_kUnimplemented; sym_kCvar; sym_kExport; sym_kFar; sym_kNear; sym_kSafecall;
   sym_kAssembler; sym_kNostackframe; sym_kInterrupt; sym_kNoreturn; sym_kIocheck; sym_kLocal;
   sym_kHardfloat; sym_kSoftfloat; sym_kMs_abi_default; sym_kMs_abi_cdecl; sym_kSaveregisters;
   sym_kSysv_abi_default; sym_kSysv_abi_cdecl; sym_kVectorcall; sym_kVarargs; sym_kWinapi;
   sym_kAlias]; ACTIONS 83 [sym_kAsm]; ACTIONS 85 [sym_kBegin]; ACTIONS 87 [sym_kCase];
   ACTIONS 89 [sym_kClass]; ACTIONS 91 [sym_kConst]; ACTIONS 93 [sym_kConstructor;
   sym_kDestructor]; ACTIONS 95 [sym_kExports]; ACTIONS 97 [sym_kFor];
   ACTIONS 99 [sym_kFunction]; ACTIONS 101 [sym_kGoto]; ACTIONS 103 [sym_kIf];
   ACTIONS 105 [sym_kInherited]; ACTIONS 107 [sym_kLabel]; ACTIONS 65 [sym_kNil];
   ACTIONS 63 [sym_kNot]; ACTIONS 99 [sym_kProcedure]; ACTIONS 109 [sym_kProperty];
   ACTIONS 111 [sym_kRaise]; ACTIONS 113 [sym_kRepeat]; ACTIONS 115 [sym_kResourcestring];
   ACTIONS 117 [sym_kString]; ACTIONS 119 [sym_kThreadvar]; ACTIONS 121 [sym_kTry];
   ACTIONS 123 [sym_kType]; ACTIONS 125 [sym_kUses]; ACTIONS 127 [sym_kVar];
   ACTIONS 129 [sym_kWhile]; ACTIONS 131 [sym_kWith]].

(** State 17. *)
Definition ts_parse_table_17 : parse_row :=
  [STATE 1310 [sym_if]; STATE 18 [sym_ifElse; sym_while; sym_repeat; sym_for; sym_foreach;
   sym_try; sym_case; sym_block; sym_asm; sym_with; sym_raise; sym_statement; sym_goto;
   sym__statement]; STATE 15141 [sym_assignment]; STATE 11829 [sym_varAssignDef];
   STATE 15141 [sym_varDef; sym_constDef]; STATE 8220 [sym__expr; sym_exprConditional];
   STATE 7765 [sym__ref; sym_lambda; sym_inherited; sym_exprDot; sym_exprDeref; sym_exprAs;
   sym_exprTpl; sym_exprSubscript; sym_exprCall]; STATE 8220 [sym_exprBinary; sym_exprUnary];
   STATE 7765 [sym_exprParens; sym_exprBrackets]; STATE 12283 [sym_genericDot; sym_genericTpl;
   sym__genericName]; STATE 7765 [sym__literal; sym_literalString];
   STATE 6994 [sym__literalString; sym_literalChar]; STATE 7765 [sym_literalNumber];
   STATE 7888 [sym__literalInt; sym__literalFloat]; STATE 18 [sym_defProc; sym_declProcFwd;
   sym_declUses]; STATE 12 [sym__ppIf]; STATE 52 [sym__ppElse]; STATE 1347 [sym__ppEndIf];
   STATE 18 [sym_ppBlock; sym_declExports; sym_declTypes; sym_declVars; sym_declConsts;
   sym_declType]; STATE 58 [sym_declProc]; STATE 18 [sym_declVar; sym_declConst; sym_declLabels;
   sym_declField; sym_declProp]; STATE 1009 [sym__declProc]; STATE 1309 [sym__declOperator];
   STATE 2759 [sym_rttiAttributes]; STATE 13110 [aux_sym_genericArg_repeat1];
   STATE 6994 [aux_sym_literalString_repeat1]; STATE 18 [aux_sym_ppBlock_repeat1];
   STATE 11753 [aux_sym_ppBlock_repeat2]; STATE 5428 [aux_sym_declVar_repeat1];
   STATE 2888 [aux_sym_rttiAttributes_repeat2]; ACTIONS 41 [anon_sym_SEMI];
   ACTIONS 145 [anon_sym_COMMA]; ACTIONS 45 [anon_sym_LBRACK]; ACTIONS 47 [anon_sym_LPAREN];
   ACTIONS 49 [aux_sym__literalString_token1]; ACTIONS 51 [anon_sym_POUND];
   ACTIONS 53 [aux_sym__literalInt_token1]; ACTIONS 55 [aux_sym__literalInt_token2;
   aux_sym__literalInt_token3]; ACTIONS 53 [aux_sym__literalFloat_token1];
   ACTIONS 11 [aux_sym_ppUsesBlock_token1]; ACTIONS 57 [aux_sym_ppUsesBlock_token2];
   ACTIONS 147 [aux_sym_ppUsesBlock_token3]; ACTIONS 61 [sym_kAdd; sym_kSub];
   ACTIONS 63 [sym_kAt]; ACTIONS 65 [sym_kTrue; sym_kFalse]; ACTIONS 3 [sym__space];
   ACTIONS 5 [sym_ppDirective]; ACTIONS 3 [sym_comment]; ACTIONS 65 [sym_ppFragmentExpr];
   ACTIONS 49 [sym__literalStringMultiline]; ACTIONS 67 [sym_identifier];
   ACTIONS 69 [sym_kDefault; sym_kNodefault; sym_kDispId]; ACTIONS 71 [sym_kGeneric];
   ACTIONS 73 [sym_kSpecialize]; ACTIONS 75 [sym_kOperator]; ACTIONS 69 [sym_kPublic;
   sym_kStatic; sym_kVirtual; sym_kAbstract; sym_kDynamic; sym_kOverride; sym_kOverload;
   sym_kReintroduce; sym_kStdcall; sym_kCdecl; sym_kCppdecl; sym_kPascal; sym_kRegister;
   sym_kMwpascal; sym_kMessage; sym_kDeprecated; sym_kExperimental; sym_kPlatform;
   sym_kUnimplemented; sym_kCvar; sym_kExport; sym_kFar; sym_kNear; sym_kSafecall;
   sym_kAssembler; sym_kNostackframe; sym_kInterrupt; sym_kNoreturn; sym_kIocheck; sym_kLocal;
   sym_kHardfloat; sym_kSoftfloat; sym_kMs_abi_default; sym_kMs_abi_cdecl; sym_kSaveregisters;
   sym_kSysv_abi_default; sym_kSysv_abi_cdecl; sym_kVectorcall; sym_kVarargs; sym_kWinapi;
   sym_kAlias]; ACTIONS 83 [sym_kAsm]; ACTIONS 85 [sym_kBegin]; ACTIONS 87 [sym_kCase];
   ACTIONS 89 [sym_kClass]; ACTIONS 91 [sym_kConst]; ACTIONS 93 [sym_kConstructor;
   sym_kDestructor]; ACTIONS 95 [sym_kExports]; ACTIONS 97 [sym_kFor];
   ACTIONS 99 [sym_kFunction]; ACTIONS 101 [sym_kGoto]; ACTIONS 103 [sym_kIf];
   ACTIONS 105 [sym_kInherited]; ACTIONS 107 [sym_kLabel]; ACTIONS 65 [sym_kNil];
   ACTIONS 63 [sym_kNot]; ACTIONS 99 [sym_kProcedure]; ACTIONS 109 [sym_kProperty];
   ACTIONS 111 [sym_kRaise]; ACTIONS 113 [sym_kRepeat]; ACTIONS 115 [sym_kResourcestring];
   ACTIONS 117 [sym_kString]; ACTIONS 119 [sym_kThreadvar]; ACTIONS 121 [sym_kTry];
   ACTIONS 123 [sym_kType]; ACTIONS 125 [sym_kUses]; ACTIONS 127 [sym_kVar];
   ACTIONS 129 [sym_kWhile]; ACTIONS 131 [sym_kWith]].

(** State 18. *)
Definition ts_parse_table_18 : parse_row :=
  [STATE 1310 [sym_if]; STATE 51 [sym_ifElse; sym_while; sym_repeat; sym_for; sym_foreach;
   sym_try; sym_case; sym_block; sym_asm; sym_with; sym_raise; sym_statement; sym_goto;
   sym__statement]; STATE 15141 [sym_assignment]; STATE 11829 [sym_varAssignDef];
   STATE 15141 [sym_varDef; sym_constDef]; STATE 8220 [sym__expr; sym_exprConditional];
   STATE 7765 [sym__ref; sym_lambda; sym_inherited; sym_exprDot; sym_exprDeref; sym_exprAs;
   sym_exprTpl; sym_exprSubscript; sym_exprCall]; STATE 8220 [sym_exprBinary; sym_exprUnary];
   STATE 7765 [sym_exprParens; sym_exprBrackets]; STATE 12283 [sym_genericDot; sym_genericTpl;
   sym__genericName]; STATE 7765 [sym__literal; sym_literalString];
   STATE 6994 [sym__literalString; sym_literalChar]; STATE 7765 [sym_literalNumber];
   STATE 7888 [sym__literalInt; sym__literalFloat]; STATE 51 [sym_defProc; sym_declProcFwd;
   sym_declUses]; STATE 12 [sym__ppIf]; STATE 52 [sym__ppElse]; STATE 1366 [sym__ppEndIf];
   STATE 51 [sym_ppBlock; sym_declExports; sym_declTypes; sym_declVars; sym_declConsts;
   sym_declType]; STATE 58 [sym_declProc]; STATE 51 [sym_declVar; sym_declConst; sym_declLabels;
   sym_declField; sym_declProp]; STATE 1009 [sym__declProc]; STATE 1309 [sym__declOperator];
   STATE 2759 [sym_rttiAttributes]; STATE 13110 [aux_sym_genericArg_repeat1];
   STATE 6994 [aux_sym_literalString_repeat1]; STATE 51 [aux_sym_ppBlock_repeat1];
   STATE 11754 [aux_sym_ppBlock_repeat2]; STATE 5428 [aux_sym_declVar_repeat1];
   STATE 2888 [aux_sym_rttiAttributes_repeat2]; ACTIONS 41 [anon_sym_SEMI];
   ACTIONS 149 [anon_sym_COMMA]; ACTIONS 45 [anon_sym_LBRACK]; ACTIONS 47 [anon_sym_LPAREN];
   ACTIONS 49 [aux_sym__literalString_token1]; ACTIONS 51 [anon_sym_POUND];
   ACTIONS 53 [aux_sym__literalInt_token1]; ACTIONS 55 [aux_sym__literalInt_token2;
   aux_sym__literalInt_token3]; ACTIONS 53 [aux_sym__literalFloat_token1];
   ACTIONS 11 [aux_sym_ppUsesBlock_token1]; ACTIONS 57 [aux_sym_ppUsesBlock_token2];
   ACTIONS 147 [aux_sym_ppUsesBlock_token3]; ACTIONS 61 [sym_kAdd; sym_kSub];
   ACTIONS 63 [sym_kAt]; ACTIONS 65 [sym_kTrue; sym_kFalse]; ACTIONS 3 [sym__space];
   ACTIONS 5 [sym_ppDirective]; ACTIONS 3 [sym_comment]; ACTIONS 65 [sym_ppFragmentExpr];
   ACTIONS 49 [sym__literalStringMultiline]; ACTIONS 67 [sym_identifier];
   ACTIONS 69 [sym_kDefault; sym_kNodefault; sym_kDispId]; ACTIONS 71 [sym_kGeneric];
   ACTIONS 73 [sym_kSpecialize]; ACTIONS 75 [sym_kOperator]; ACTIONS 69 [sym_kPublic;
   sym_kStatic; sym_kVirtual; sym_kAbstract; sym_kDynamic; sym_kOverride; sym_kOverload;
   sym_kReintroduce; sym_kStdcall; sym_kCdecl; sym_kCppdecl; sym_kPascal; sym_kRegister;
   sym_kMwpascal; sym_kMessage; sym_kDeprecated; sym_kExperimental; sym_kPlatform;
   sym_kUnimplemented; sym_kCvar; sym_kExport; sym_kFar; sym_kNear; sym_kSafecall;
   sym_kAssembler; sym_kNostackframe; sym_kInterrupt; sym_kNoreturn; sym_kIocheck; sym_kLocal;
   sym_kHardfloat; sym_kSoftfloat; sym_kMs_abi_default; sym_kMs_abi_cdecl; sym_kSaveregisters;
   sym_kSysv_abi_default; sym_kSysv_abi_cdecl; sym_kVectorcall; sym_kVarargs; sym_kWinapi;
   sym_kAlias]; ACTIONS 83 [sym_kAsm]; ACTIONS 85 [sym_kBegin]; ACTIONS 87 [sym_kCase];
   ACTIONS 89 [sym_kClass]; ACTIONS 91 [sym_kConst]; ACTIONS 93 [sym_kConstructor;
   sym_kDestructor]; ACTIONS 95 [sym_kExports]; ACTIONS 97 [sym_kFor];
   ACTIONS 99 [sym_kFunction]; ACTIONS 101 [sym_kGoto]; ACTIONS 103 [sym_kIf];
   ACTIONS 105 [sym_kInherited]; ACTIONS 107 [sym_kLabel]; ACTIONS 65 [sym_kNil];
   ACTIONS 63 [sym_kNot]; ACTIONS 99 [sym_kProcedure]; ACTIONS 109 [sym_kProperty];
   ACTIONS 111 [sym_kRaise]; ACTIONS 113 [sym_kRepeat]; ACTIONS 115 [sym_kResourcestring];
   ACTIONS 117 [sym_kString]; ACTIONS 119 [sym_kThreadvar]; ACTIONS 121 [sym_kTry];
   ACTIONS 123 [sym_kType]; ACTIONS 125 [sym_kUses]; ACTIONS 127 [sym_kVar];
   ACTIONS 129 [sym_kWhile]; ACTIONS 131 [sym_kWith]].

(** State 19. *)
Definition ts_parse_table_19 : parse_row :=
  [STATE 1310 [sym_if]; STATE 29 [sym_ifElse; sym_while; sym_repeat; sym_for; sym_foreach;
   sym_try; sym_case; sym_block; sym_asm; sym_with; sym_raise; sym_statement; sym_goto;
   sym__statement]; STATE 15141 [sym_assignment]; STATE 11829 [sym_varAssignDef];
   STATE 15141 [sym_varDef; sym_constDef]; STATE 8220 [sym__expr; sym_exprConditional];
   STATE 7765 [sym__ref; sym_lambda; sym_inherited; sym_exprDot; sym_exprDeref; sym_exprAs;
   sym_exprTpl; sym_exprSubscript; sym_exprCall]; STATE 8220 [sym_exprBinary; sym_exprUnary];
   STATE 7765 [sym_exprParens; sym_exprBrackets]; STATE 12283 [sym_genericDot; sym_genericTpl;
   sym__genericName]; STATE 7765 [sym__literal; sym_literalString];
   STATE 6994 [sym__literalString; sym_literalChar]; STATE 7765 [sym_literalNumber];
   STATE 7888 [sym__literalInt; sym__literalFloat]; STATE 29 [sym_defProc; sym_declProcFwd;
   sym_declUses]; STATE 12 [sym__ppIf]; STATE 52 [sym__ppElse]; STATE 10472 [sym__ppEndIf];
   STATE 29 [sym_ppBlock; sym_declExports; sym_declTypes; sym_declVars; sym_declConsts;
   sym_declType]; STATE 57 [sym_declProc]; STATE 29 [sym_declVar; sym_declConst; sym_declLabels;
   sym_declField; sym_declProp]; STATE 1009 [sym__declProc]; STATE 1309 [sym__declOperator];
   STATE 2759 [sym_rttiAttributes]; STATE 13110 [aux_sym_genericArg_repeat1];
   STATE 6994 [aux_sym_literalString_repeat1]; STATE 29 [aux_sym_ppBlock_repeat1];
   STATE 11985 [aux_sym_ppBlock_repeat2]; STATE 5428 [aux_sym_declVar_repeat1];
   STATE 2888 [aux_sym_rttiAttributes_repeat2]; ACTIONS 41 [anon_sym_SEMI];
   ACTIONS 159 [anon_sym_COMMA]; ACTIONS 45 [anon_sym_LBRACK]; ACTIONS 47 [anon_sym_LPAREN];
   ACTIONS 49 [aux_sym__literalString_token1]; ACTIONS 51 [anon_sym_POUND];
   ACTIONS 53 [aux_sym__literalInt_token1]; ACTIONS 55 [aux_sym__literalInt_token2;
   aux_sym__literalInt_token3]; ACTIONS 53 [aux_sym__literalFloat_token1];
   ACTIONS 11 [aux_sym_ppUsesBlock_token1]; ACTIONS 57 [aux_sym_ppUsesBlock_token2];
   ACTIONS 161 [aux_sym_ppUsesBlock_token3]; ACTIONS 61 [sym_kAdd; sym_kSub];
   ACTIONS 63 [sym_kAt]; ACTIONS 65 [sym_kTrue; sym_kFalse]; ACTIONS 3 [sym__space];
   ACTIONS 5 [sym_ppDirective]; ACTIONS 3 [sym_comment]; ACTIONS 65 [sym_ppFragmentExpr];
   ACTIONS 49 [sym__literalStringMultiline]; ACTIONS 67 [sym_identifier];
   ACTIONS 69 [sym_kDefault; sym_kNodefault; sym_kDispId]; ACTIONS 71 [sym_kGeneric];
   ACTIONS 73 [sym_kSpecialize]; ACTIONS 75 [sym_kOperator]; ACTIONS 69 [sym_kPublic;
   sym_kStatic; sym_kVirtual; sym_kAbstract; sym_kDynamic; sym_kOverride; sym_kOverload;
   sym_kReintroduce; sym_kStdcall; sym_kCdecl; sym_kCppdecl; sym_kPascal; sym_kRegister;
   sym_kMwpascal; sym_kMessage; sym_kDeprecated; sym_kExperimental; sym_kPlatform;
   sym_kUnimplemented; sym_kCvar; sym_kExport; sym_kFar; sym_kNear; sym_kSafecall;
   sym_kAssembler; sym_kNostackframe; sym_kInterrupt; sym_kNoreturn; sym_kIocheck; sym_kLocal;
   sym_kHardfloat; sym_kSoftfloat; sym_kMs_abi_default; sym_kMs_abi_cdecl; sym_kSaveregisters;
   sym_kSysv_abi_default; sym_kSysv_abi_cdecl; sym_kVectorcall; sym_kVarargs; sym_kWinapi;
   sym_kAlias]; ACTIONS 83 [sym_kAsm]; ACTIONS 85 [sym_kBegin]; ACTIONS 87 [sym_kCase];
   ACTIONS 89 [sym_kClass]; ACTIONS 91 [sym_kConst]; ACTIONS 93 [sym_kConstructor;
   sym_kDestructor]; ACTIONS 95 [sym_kExports]; ACTIONS 97 [sym_kFor];
   ACTIONS 99 [sym_kFunction]; ACTIONS 101 [sym_kGoto]; ACTIONS 103 [sym_kIf];
   ACTIONS 105 [sym_kInherited]; ACTIONS 107 [sym_kLabel]; ACTIONS 65 [sym_kNil];
   ACTIONS 63 [sym_kNot]; ACTIONS 99 [sym_kProcedure]; ACTIONS 109 [sym_kProperty];
   ACTIONS 111 [sym_kRaise]; ACTIONS 113 [sym_kRepeat]; ACTIONS 115 [sym_kResourcestring];
   ACTIONS 117 [sym_kString]; ACTIONS 119 [sym_kThreadvar]; ACTIONS 121 [sym_kTry];
   ACTIONS 123 [sym_kType]; ACTIONS 125 [sym_kUses]; ACTIONS 127 [sym_kVar];
   ACTIONS 129 [sym_kWhile]; ACTIONS 131 [sym_kWith]].

(** State 20. *)
Definition ts_parse_table_20 : parse_row :=
  [STATE 1310 [sym_if]; STATE 11 [sym_ifElse; sym_while; sym_repeat; sym_for; sym_foreach;
   sym_try; sym_case; sym_block; sym_asm; sym_with; sym_raise; sym_statement; sym_goto;
   sym__statement]; STATE 15141 [sym_assignment]; STATE 11829 [sym_varAssignDef];
   STATE 15141 [sym_varDef; sym_constDef]; STATE 8220 [sym__expr; sym_exprConditional];
   STATE 7765 [sym__ref; sym_lambda; sym_inherited; sym_exprDot; sym_exprDeref; sym_exprAs;
   sym_exprTpl; sym_exprSubscript; sym_exprCall]; STATE 8220 [sym_exprBinary; sym_exprUnary];
   STATE 7765 [sym_exprParens; sym_exprBrackets]; STATE 12283 [sym_genericDot; sym_genericTpl;
   sym__genericName]; STATE 7765 [sym__literal; sym_literalString];
   STATE 6994 [sym__literalString; sym_literalChar]; STATE 7765 [sym_literalNumber];
   STATE 7888 [sym__literalInt; sym__literalFloat]; STATE 11 [sym_defProc; sym_declProcFwd;
   sym_declUses]; STATE 12 [sym__ppIf]; STATE 52 [sym__ppElse]; STATE 10389 [sym__ppEndIf];
   STATE 11 [sym_ppBlock; sym_declExports; sym_declTypes; sym_declVars; sym_declConsts;
   sym_declType]; STATE 58 [sym_declProc]; STATE 11 [sym_declVar; sym_declConst; sym_declLabels;
   sym_declField; sym_declProp]; STATE 1009 [sym__declProc]; STATE 1309 [sym__declOperator];
   STATE 2759 [sym_rttiAttributes]; STATE 13110 [aux_sym_genericArg_repeat1];
   STATE 6994 [aux_sym_literalString_repeat1]; STATE 11 [aux_sym_ppBlock_repeat1];
   STATE 11919 [aux_sym_ppBlock_repeat2]; STATE 5428 [aux_sym_declVar_repeat1];
   STATE 2888 [aux_sym_rttiAttributes_repeat2]; ACTIONS 41 [anon_sym_SEMI];
   ACTIONS 163 [anon_sym_COMMA]; ACTIONS 45 [anon_sym_LBRACK]; ACTIONS 47 [anon_sym_LPAREN];
   ACTIONS 49 [aux_sym__literalString_token1]; ACTIONS 51 [anon_sym_POUND];
   ACTIONS 53 [aux_sym__literalInt_token1]; ACTIONS 55 [aux_sym__literalInt_token2;
   aux_sym__literalInt_token3]; ACTIONS 53 [aux_sym__literalFloat_token1];
   ACTIONS 11 [aux_sym_ppUsesBlock_token1]; ACTIONS 57 [aux_sym_ppUsesBlock_token2];
   ACTIONS 151 [aux_sym_ppUsesBlock_token3]; ACTIONS 61 [sym_kAdd; sym_kSub];
   ACTIONS 63 [sym_kAt]; ACTIONS 65 [sym_kTrue; sym_kFalse]; ACTIONS 3 [sym__space];
   ACTIONS 5 [sym_ppDirective]; ACTIONS 3 [sym_comment]; ACTIONS 65 [sym_ppFragmentExpr];
   ACTIONS 49 [sym__literalStringMultiline]; ACTIONS 67 [sym_identifier];
   ACTIONS 69 [sym_kDefault; sym_kNodefault; sym_kDispId]; ACTIONS 71 [sym_kGeneric];
   ACTIONS 73 [sym_kSpecialize]; ACTIONS 75 [sym_kOperator]; ACTIONS 69 [sym_kPublic;
   sym_kStatic; sym_kVirtual; sym_kAbstract; sym_kDynamic; sym_kOverride; sym_kOverload;
   sym_kReintroduce; sym_kStdcall; sym_kCdecl; sym_kCppdecl; sym_kPascal; sym_kRegister;
   sym_kMwpascal; sym_kMessage; sym_kDeprecated; sym_kExperimental; sym_kPlatform;
   sym_kUnimplemented; sym_kCvar; sym_kExport; sym_kFar; sym_kNear; sym_kSafecall;
   sym_kAssembler; sym_kNostackframe; sym_kInterrupt; sym_kNoreturn; sym_kIocheck; sym_kLocal;
   sym_kHardfloat; sym_kSoftfloat; sym_kMs_abi_default; sym_kMs_abi_cdecl; sym_kSaveregisters;
   sym_kSysv_abi_default; sym_kSysv_abi_cdecl; sym_kVectorcall; sym_kVarargs; sym_kWinapi;
   sym_kAlias]; ACTIONS 83 [sym_kAsm]; ACTIONS 85 [sym_kBegin]; ACTIONS 87 [sym_kCase];
   ACTIONS 89 [sym_kClass]; ACTIONS 91 [sym_kConst]; ACTIONS 93 [sym_kConstructor;
   sym_kDestructor]; ACTIONS 95 [sym_kExports]; ACTIONS 97 [sym_kFor];
   ACTIONS 99 [sym_kFunction]; ACTIONS 101 [sym_kGoto]; ACTIONS 103 [sym_kIf];
   ACTIONS 105 [sym_kInherited]; ACTIONS 107 [sym_kLabel]; ACTIONS 65 [sym_kNil];
   ACTIONS 63 [sym_kNot]; ACTIONS 99 [sym_kProcedure]; ACTIONS 109 [sym_kProperty];
   ACTIONS 111 [sym_kRaise]; ACTIONS 113 [sym_kRepeat]; ACTIONS 115 [sym_kResourcestring];
   ACTIONS 117 [sym_kString]; ACTIONS 119 [sym_kThreadvar]; ACTIONS 121 [sym_kTry];
   ACTIONS 123 [sym_kType]; ACTIONS 125 [sym_kUses]; ACTIONS 127 [sym_kVar];
   ACTIONS 129 [sym_kWhile]; ACTIONS 131 [sym_kWith]].

(** State 21. *)
Definition ts_parse_table_21 : parse_row :=
  [STATE 1310 [sym_if]; STATE 51 [sym_ifElse; sym_while; sym_repeat; sym_for; sym_foreach;
   sym_try; sym_case; sym_block; sym_asm; sym_with; sym_raise; sym_statement; sym_goto;
   sym__statement]; STATE 15141 [sym_assignment]; STATE 11829 [sym_varAssignDef];
   STATE 15141 [sym_varDef; sym_constDef]; STATE 8220 [sym__expr; sym_exprConditional];
   STATE 7765 [sym__ref; sym_lambda; sym_inherited; sym_exprDot; sym_exprDeref; sym_exprAs;
   sym_exprTpl; sym_exprSubscript; sym_exprCall]; STATE 8220 [sym_exprBinary; sym_exprUnary];
   STATE 7765 [sym_exprParens; sym_exprBrackets]; STATE 12283 [sym_genericDot; sym_genericTpl;
   sym__genericName]; STATE 7765 [sym__literal; sym_literalString];
   STATE 6994 [sym__literalString; sym_literalChar]; STATE 7765 [sym_literalNumber];
   STATE 7888 [sym__literalInt; sym__literalFloat]; STATE 51 [sym_defProc; sym_declProcFwd;
   sym_declUses]; STATE 12 [sym__ppIf]; STATE 52 [sym__ppElse]; STATE 10456 [sym__ppEndIf];
   STATE 51 [sym_ppBlock; sym_declExports; sym_declTypes; sym_declVars; sym_declConsts;
   sym_declType]; STATE 58 [sym_declProc]; STATE 51 [sym_declVar; sym_declConst; sym_declLabels;
   sym_declField; sym_declProp]; STATE 1009 [sym__declProc]; STATE 1309 [sym__declOperator];
   STATE 2759 [sym_rttiAttributes]; STATE 13110 [aux_sym_genericArg_repeat1];
   STATE 6994 [aux_sym_literalString_repeat1]; STATE 51 [aux_sym_ppBlock_repeat1];
   STATE 11867 [aux_sym_ppBlock_repeat2]; STATE 5428 [aux_sym_declVar_repeat1];
   STATE 2888 [aux_sym_rttiAttributes_repeat2]; ACTIONS 41 [anon_sym_SEMI];
   ACTIONS 149 [anon_sym_COMMA]; ACTIONS 45 [anon_sym_LBRACK]; ACTIONS 47 [anon_sym_LPAREN];
   ACTIONS 49 [aux_sym__literalString_token1]; ACTIONS 51 [anon_sym_POUND];
   ACTIONS 53 [aux_sym__literalInt_token1]; ACTIONS 55 [aux_sym__literalInt_token2;
   aux_sym__literalInt_token3]; ACTIONS 53 [aux_sym__literalFloat_token1];
   ACTIONS 11 [aux_sym_ppUsesBlock_token1]; ACTIONS 57 [aux_sym_ppUsesBlock_token2];
   ACTIONS 139 [aux_sym_ppUsesBlock_token3]; ACTIONS 61 [sym_kAdd; sym_kSub];
   ACTIONS 63 [sym_kAt]; ACTIONS 65 [sym_kTrue; sym_kFalse]; ACTIONS 3 [sym__space];
   ACTIONS 5 [sym_ppDirective]; ACTIONS 3 [sym_comment]; ACTIONS 65 [sym_ppFragmentExpr];
   ACTIONS 49 [sym__literalStringMultiline]; ACTIONS 67 [sym_identifier];
   ACTIONS 69 [sym_kDefault; sym_kNodefault; sym_kDispId]; ACTIONS 71 [sym_kGeneric];
   ACTIONS 73 [sym_kSpecialize]; ACTIONS 75 [sym_kOperator]; ACTIONS 69 [sym_kPublic;
   sym_kStatic; sym_kVirtual; sym_kAbstract; sym_kDynamic; sym_kOverride; sym_kOverload;
   sym_kReintroduce; sym_kStdcall; sym_kCdecl; sym_kCppdecl; sym_kPascal; sym_kRegister;
   sym_kMwpascal; sym_kMessage; sym_kDeprecated; sym_kExperimental; sym_kPlatform;
   sym_kUnimplemented; sym_kCvar; sym_kExport; sym_kFar; sym_kNear; sym_kSafecall;
   sym_kAssembler; sym_kNostackframe; sym_kInterrupt; sym_kNoreturn; sym_kIocheck; sym_kLocal;
   sym_kHardfloat; sym_kSoftfloat; sym_kMs_abi_default; sym_kMs_abi_cdecl; sym_kSaveregisters;
   sym_kSysv_abi_default; sym_kSysv_abi_cdecl; sym_kVectorcall; sym_kVarargs; sym_kWinapi;
   sym_kAlias]; ACTIONS 83 [sym_kAsm]; ACTIONS 85 [sym_kBegin]; ACTIONS 87 [sym_kCase];
   ACTIONS 89 [sym_kClass]; ACTIONS 91 [sym_kConst]; ACTIONS 93 [sym_kConstructor;
   sym_kDestructor]; ACTIONS 95 [sym_kExports]; ACTIONS 97 [sym_kFor];
   ACTIONS 99 [sym_kFunction]; ACTIONS 101 [sym_kGoto]; ACTIONS 103 [sym_kIf];
   ACTIONS 105 [sym_kInherited]; ACTIONS 107 [sym_kLabel]; ACTIONS 65 [sym_kNil];
   ACTIONS 63 [sym_kNot]; ACTIONS 99 [sym_kProcedure]; ACTIONS 109 [sym_kProperty];
   ACTIONS 111 [sym_kRaise]; ACTIONS 113 [sym_kRepeat]; ACTIONS 115 [sym_kResourcestring];
   ACTIONS 117 [sym_kString]; ACTIONS 119 [sym_kThreadvar]; ACTIONS 121 [sym_kTry];
   ACTIONS 123 [sym_kType]; ACTIONS 125 [sym_kUses]; ACTIONS 127 [sym_kVar];
   ACTIONS 129 [sym_kWhile]; ACTIONS 131 [sym_kWith]].

(** State 22. *)
Definition ts_parse_table_22 : parse_row :=
  [STATE 1310 [sym_if]; STATE 37 [sym_ifElse; sym_while; sym_repeat; sym_for; sym_foreach;
   sym_try; sym_case; sym_block; sym_asm; sym_with; sym_raise; sym_statement; sym_goto;
   sym__statement]; STATE 15141 [sym_assignment]; STATE 11829 [sym_varAssignDef];
   STATE 15141 [sym_varDef; sym_constDef]; STATE 8220 [sym__expr; sym_exprConditional];
   STATE 7765 [sym__ref; sym_lambda; sym_inherited; sym_exprDot; sym_exprDeref; sym_exprAs;
   sym_exprTpl; sym_exprSubscript; sym_exprCall]; STATE 8220 [sym_exprBinary; sym_exprUnary];
   STATE 7765 [sym_exprParens; sym_exprBrackets]; STATE 12283 [sym_genericDot; sym_genericTpl;
   sym__genericName]; STATE 7765 [sym__literal; sym_literalString];
   STATE 6994 [sym__literalString; sym_literalChar]; STATE 7765 [sym_literalNumber];
   STATE 7888 [sym__literalInt; sym__literalFloat]; STATE 37 [sym_defProc; sym_declProcFwd;
   sym_declUses]; STATE 12 [sym__ppIf]; STATE 52 [sym__ppElse]; STATE 10289 [sym__ppEndIf];
   STATE 37 [sym_ppBlock; sym_declExports; sym_declTypes; sym_declVars; sym_declConsts;
   sym_declType]; STATE 53 [sym_declProc]; STATE 37 [sym_declVar; sym_declConst; sym_declLabels;
   sym_declField; sym_declProp]; STATE 1009 [sym__declProc]; STATE 1309 [sym__declOperator];
   STATE 2759 [sym_rttiAttributes]; STATE 13110 [aux_sym_genericArg_repeat1];
   STATE 6994 [aux_sym_literalString_repeat1]; STATE 37 [aux_sym_ppBlock_repeat1];
   STATE 11872 [aux_sym_ppBlock_repeat2]; STATE 5428 [aux_sym_declVar_repeat1];
   STATE 2888 [aux_sym_rttiAttributes_repeat2]; ACTIONS 41 [anon_sym_SEMI];
   ACTIONS 165 [anon_sym_COMMA]; ACTIONS 45 [anon_sym_LBRACK]; ACTIONS 47 [anon_sym_LPAREN];
   ACTIONS 49 [aux_sym__literalString_token1]; ACTIONS 51 [anon_sym_POUND];
   ACTIONS 53 [aux_sym__literalInt_token1]; ACTIONS 55 [aux_sym__literalInt_token2;
   aux_sym__literalInt_token3]; ACTIONS 53 [aux_sym__literalFloat_token1];
   ACTIONS 11 [aux_sym_ppUsesBlock_token1]; ACTIONS 57 [aux_sym_ppUsesBlock_token2];
   ACTIONS 167 [aux_sym_ppUsesBlock_token3]; ACTIONS 61 [sym_kAdd; sym_kSub];
   ACTIONS 63 [sym_kAt]; ACTIONS 65 [sym_kTrue; sym_kFalse]; ACTIONS 3 [sym__space];
   ACTIONS 5 [sym_ppDirective]; ACTIONS 3 [sym_comment]; ACTIONS 65 [sym_ppFragmentExpr];
   ACTIONS 49 [sym__literalStringMultiline]; ACTIONS 67 [sym_identifier];
   ACTIONS 69 [sym_kDefault; sym_kNodefault; sym_kDispId]; ACTIONS 71 [sym_kGeneric];
   ACTIONS 73 [sym_kSpecialize]; ACTIONS 75 [sym_kOperator]; ACTIONS 69 [sym_kPublic;
   sym_kStatic; sym_kVirtual; sym_kAbstract; sym_kDynamic; sym_kOverride; sym_kOverload;
   sym_kReintroduce; sym_kStdcall; sym_kCdecl; sym_kCppdecl; sym_kPascal; sym_kRegister;
   sym_kMwpascal; sym_kMessage; sym_kDeprecated; sym_kExperimental; sym_kPlatform;
   sym_kUnimplemented; sym_kCvar; sym_kExport; sym_kFar; sym_kNear; sym_kSafecall;
   sym_kAssembler; sym_kNostackframe; sym_kInterrupt; sym_kNoreturn; sym_kIocheck; sym_kLocal;
   sym_kHardfloat; sym_kSoftfloat; sym_kMs_abi_default; sym_kMs_abi_cdecl; sym_kSaveregisters;
   sym_kSysv_abi_default; sym_kSysv_abi_cdecl; sym_kVectorcall; sym_kVarargs; sym_kWinapi;
   sym_kAlias]; ACTIONS 83 [sym_kAsm]; ACTIONS 85 [sym_kBegin]; ACTIONS 87 [sym_kCase];
   ACTIONS 89 [sym_kClass]; ACTIONS 91 [sym_kConst]; ACTIONS 93 [sym_kConstructor;
   sym_kDestructor]; ACTIONS 95 [sym_kExports]; ACTIONS 97 [sym_kFor];
   ACTIONS 99 [sym_kFunction]; ACTIONS 101 [sym_kGoto]; ACTIONS 103 [sym_kIf];
   ACTIONS 105 [sym_kInherited]; ACTIONS 107 [sym_kLabel]; ACTIONS 65 [sym_kNil];
   ACTIONS 63 [sym_kNot]; ACTIONS 99 [sym_kProcedure]; ACTIONS 109 [sym_kProperty];
   ACTIONS 111 [sym_kRaise]; ACTIONS 113 [sym_kRepeat]; ACTIONS 115 [sym_kResourcestring];
   ACTIONS 117 [sym_kString]; ACTIONS 119 [sym_kThreadvar]; ACTIONS 121 [sym_kTry];
   ACTIONS 123 [sym_kType]; ACTIONS 125 [sym_kUses]; ACTIONS 127 [sym_kVar];
   ACTIONS 129 [sym_kWhile]; ACTIONS 131 [sym_kWith]].

(** State 23. *)
Definition ts_parse_table_23 : parse_row :=
  [STATE 1310 [sym_if]; STATE 49 [sym_ifElse; sym_while; sym_repeat; sym_for; sym_foreach;
   sym_try; sym_case; sym_block; sym_asm; sym_with; sym_raise; sym_statement; sym_goto;
   sym__statement]; STATE 15141 [sym_assignment]; STATE 11829 [sym_varAssignDef];
   STATE 15141 [sym_varDef; sym_constDef]; STATE 8220 [sym__expr; sym_exprConditional];
   STATE 7765 [sym__ref; sym_lambda; sym_inherited; sym_exprDot; sym_exprDeref; sym_exprAs;
   sym_exprTpl; sym_exprSubscript; sym_exprCall]; STATE 8220 [sym_exprBinary; sym_exprUnary];
   STATE 7765 [sym_exprParens; sym_exprBrackets]; STATE 12283 [sym_genericDot; sym_genericTpl;
   sym__genericName]; STATE 7765 [sym__literal; sym_literalString];
   STATE 6994 [sym__literalString; sym_literalChar]; STATE 7765 [sym_literalNumber];
   STATE 7888 [sym__literalInt; sym__literalFloat]; STATE 49 [sym_defProc; sym_declProcFwd;
   sym_declUses]; STATE 12 [sym__ppIf]; STATE 52 [sym__ppElse]; STATE 2704 [sym__ppEndIf];
   STATE 49 [sym_ppBlock; sym_declExports; sym_declTypes; sym_declVars; sym_declConsts;
   sym_declType]; STATE 58 [sym_declProc]; STATE 49 [sym_declVar; sym_declConst; sym_declLabels;
   sym_declField; sym_declProp]; STATE 1009 [sym__declProc]; STATE 1309 [sym__declOperator];
   STATE 2759 [sym_rttiAttributes]; STATE 13110 [aux_sym_genericArg_repeat1];
   STATE 6994 [aux_sym_literalString_repeat1]; STATE 49 [aux_sym_ppBlock_repeat1];
   STATE 11962 [aux_sym_ppBlock_repeat2]; STATE 5428 [aux_sym_declVar_repeat1];
   STATE 2888 [aux_sym_rttiAttributes_repeat2]; ACTIONS 41 [anon_sym_SEMI];
   ACTIONS 169 [anon_sym_COMMA]; ACTIONS 45 [anon_sym_LBRACK]; ACTIONS 47 [anon_sym_LPAREN];
   ACTIONS 49 [aux_sym__literalString_token1]; ACTIONS 51 [anon_sym_POUND];
   ACTIONS 53 [aux_sym__literalInt_token1]; ACTIONS 55 [aux_sym__literalInt_token2;
   aux_sym__literalInt_token3]; ACTIONS 53 [aux_sym__literalFloat_token1];
   ACTIONS 11 [aux_sym_ppUsesBlock_token1]; ACTIONS 57 [aux_sym_ppUsesBlock_token2];
   ACTIONS 171 [aux_sym_ppUsesBlock_token3]; ACTIONS 61 [sym_kAdd; sym_kSub];
   ACTIONS 63 [sym_kAt]; ACTIONS 65 [sym_kTrue; sym_kFalse]; ACTIONS 3 [sym__space];
   ACTIONS 5 [sym_ppDirective]; ACTIONS 3 [sym_comment]; ACTIONS 65 [sym_ppFragmentExpr];
   ACTIONS 49 [sym__literalStringMultiline]; ACTIONS 67 [sym_identifier];
   ACTIONS 69 [sym_kDefault; sym_kNodefault; sym_kDispId]; ACTIONS 71 [sym_kGeneric];
   ACTIONS 73 [sym_kSpecialize]; ACTIONS 75 [sym_kOperator]; ACTIONS 69 [sym_kPublic;
   sym_kStatic; sym_kVirtual; sym_kAbstract; sym_kDynamic; sym_kOverride; sym_kOverload;
   sym_kReintroduce; sym_kStdcall; sym_kCdecl; sym_kCppdecl; sym_kPascal; sym_kRegister;
   sym_kMwpascal; sym_kMessage; sym_kDeprecated; sym_kExperimental; sym_kPlatform;
   sym_kUnimplemented; sym_kCvar; sym_kExport; sym_kFar; sym_kNear; sym_kSafecall;
   sym_kAssembler; sym_kNostackframe; sym_kInterrupt; sym_kNoreturn; sym_kIocheck; sym_kLocal;
   sym_kHardfloat; sym_kSoftfloat; sym_kMs_abi_default; sym_kMs_abi_cdecl; sym_kSaveregisters;
   sym_kSysv_abi_default; sym_kSysv_abi_cdecl; sym_kVectorcall; sym_kVarargs; sym_kWinapi;
   sym_kAlias]; ACTIONS 83 [sym_kAsm]; ACTIONS 85 [sym_kBegin]; ACTIONS 87 [sym_kCase];
   ACTIONS 89 [sym_kClass]; ACTIONS 91 [sym_kConst]; ACTIONS 93 [sym_kConstructor;
   sym_kDestructor]; ACTIONS 95 [sym_kExports]; ACTIONS 97 [sym_kFor];
   ACTIONS 99 [sym_kFunction]; ACTIONS 101 [sym_kGoto]; ACTIONS 103 [sym_kIf];
   ACTIONS 105 [sym_kInherited]; ACTIONS 107 [sym_kLabel]; ACTIONS 65 [sym_kNil];
   ACTIONS 63 [sym_kNot]; ACTIONS 99 [sym_kProcedure]; ACTIONS 109 [sym_kProperty];
   ACTIONS 111 [sym_kRaise]; ACTIONS 113 [sym_kRepeat]; ACTIONS 115 [sym_kResourcestring];
   ACTIONS 117 [sym_kString]; ACTIONS 119 [sym_kThreadvar]; ACTIONS 121 [sym_kTry];
   ACTIONS 123 [sym_kType]; ACTIONS 125 [sym_kUses]; ACTIONS 127 [sym_kVar];
   ACTIONS 129 [sym_kWhile]; ACTIONS 131 [sym_kWith]].

(** State 24. *)
Definition ts_parse_table_24 : parse_row :=
  [STATE 1310 [sym_if]; STATE 26 [sym_ifElse; sym_while; sym_repeat; sym_for; sym_foreach;
   sym_try; sym_case; sym_block; sym_asm; sym_with; sym_raise; sym_statement; sym_goto;
   sym__statement]; STATE 15141 [sym_assignment]; STATE 11829 [sym_varAssignDef];
   STATE 15141 [sym_varDef; sym_constDef]; STATE 8220 [sym__expr; sym_exprConditional];
   STATE 7765 [sym__ref; sym_lambda; sym_inherited; sym_exprDot; sym_exprDeref; sym_exprAs;
   sym_exprTpl; sym_exprSubscript; sym_exprCall]; STATE 8220 [sym_exprBinary; sym_exprUnary];
   STATE 7765 [sym_exprParens; sym_exprBrackets]; STATE 12283 [sym_genericDot; sym_genericTpl;
   sym__genericName]; STATE 7765 [sym__literal; sym_literalString];
   STATE 6994 [sym__literalString; sym_literalChar]; STATE 7765 [sym_literalNumber];
   STATE 7888 [sym__literalInt; sym__literalFloat]; STATE 26 [sym_defProc; sym_declProcFwd;
   sym_declUses]; STATE 12 [sym__ppIf]; STATE 52 [sym__ppElse]; STATE 10399 [sym__ppEndIf];
   STATE 26 [sym_ppBlock; sym_declExports; sym_declTypes; sym_declVars; sym_declConsts;
   sym_declType]; STATE 58 [sym_declProc]; STATE 26 [sym_declVar; sym_declConst; sym_declLabels;
   sym_declField; sym_declProp]; STATE 1009 [sym__declProc]; STATE 1309 [sym__declOperator];
   STATE 2759 [sym_rttiAttributes]; STATE 13110 [aux_sym_genericArg_repeat1];
   STATE 6994 [aux_sym_literalString_repeat1]; STATE 26 [aux_sym_ppBlock_repeat1];
   STATE 11957 [aux_sym_ppBlock_repeat2]; STATE 5428 [aux_sym_declVar_repeat1];
   STATE 2888 [aux_sym_rttiAttributes_repeat2]; ACTIONS 41 [anon_sym_SEMI];
   ACTIONS 173 [anon_sym_COMMA]; ACTIONS 45 [anon_sym_LBRACK]; ACTIONS 47 [anon_sym_LPAREN];
   ACTIONS 49 [aux_sym__literalString_token1]; ACTIONS 51 [anon_sym_POUND];
   ACTIONS 53 [aux_sym__literalInt_token1]; ACTIONS 55 [aux_sym__literalInt_token2;
   aux_sym__literalInt_token3]; ACTIONS 53 [aux_sym__literalFloat_token1];
   ACTIONS 11 [aux_sym_ppUsesBlock_token1]; ACTIONS 57 [aux_sym_ppUsesBlock_token2];
   ACTIONS 175 [aux_sym_ppUsesBlock_token3]; ACTIONS 61 [sym_kAdd; sym_kSub];
   ACTIONS 63 [sym_kAt]; ACTIONS 65 [sym_kTrue; sym_kFalse]; ACTIONS 3 [sym__space];
   ACTIONS 5 [sym_ppDirective]; ACTIONS 3 [sym_comment]; ACTIONS 65 [sym_ppFragmentExpr];
   ACTIONS 49 [sym__literalStringMultiline]; ACTIONS 67 [sym_identifier];
   ACTIONS 69 [sym_kDefault; sym_kNodefault; sym_kDispId]; ACTIONS 71 [sym_kGeneric];
   ACTIONS 73 [sym_kSpecialize]; ACTIONS 75 [sym_kOperator]; ACTIONS 69 [sym_kPublic;
   sym_kStatic; sym_kVirtual; sym_kAbstract; sym_kDynamic; sym_kOverride; sym_kOverload;
   sym_kReintroduce; sym_kStdcall; sym_kCdecl; sym_kCppdecl; sym_kPascal; sym_kRegister;
   sym_kMwpascal; sym_kMessage; sym_kDeprecated; sym_kExperimental; sym_kPlatform;
   sym_kUnimplemented; sym_kCvar; sym_kExport; sym_kFar; sym_kNear; sym_kSafecall;
   sym_kAssembler; sym_kNostackframe; sym_kInterrupt; sym_kNoreturn; sym_kIocheck; sym_kLocal;
   sym_kHardfloat; sym_kSoftfloat; sym_kMs_abi_default; sym_kMs_abi_cdecl; sym_kSaveregisters;
   sym_kSysv_abi_default; sym_kSysv_abi_cdecl; sym_kVectorcall; sym_kVarargs; sym_kWinapi;
   sym_kAlias]; ACTIONS 83 [sym_kAsm]; ACTIONS 85 [sym_kBegin]; ACTIONS 87 [sym_kCase];
   ACTIONS 89 [sym_kClass]; ACTIONS 91 [sym_kConst]; ACTIONS 93 [sym_kConstructor;
   sym_kDestructor]; ACTIONS 95 [sym_kExports]; ACTIONS 97 [sym_kFor];
   ACTIONS 99 [sym_kFunction]; ACTIONS 101 [sym_kGoto]; ACTIONS 103 [sym_kIf];
   ACTIONS 105 [sym_kInherited]; ACTIONS 107 [sym_kLabel]; ACTIONS 65 [sym_kNil];
   ACTIONS 63 [sym_kNot]; ACTIONS 99 [sym_kProcedure]; ACTIONS 109 [sym_kProperty];
   ACTIONS 111 [sym_kRaise]; ACTIONS 113 [sym_kRepeat]; ACTIONS 115 [sym_kResourcestring];
   ACTIONS 117 [sym_kString]; ACTIONS 119 [sym_kThreadvar]; ACTIONS 121 [sym_kTry];
   ACTIONS 123 [sym_kType]; ACTIONS 125 [sym_kUses]; ACTIONS 127 [sym_kVar];
   ACTIONS 129 [sym_kWhile]; ACTIONS 131 [sym_kWith]].

(** State 25. *)
Definition ts_parse_table_25 : parse_row :=
  [STATE 1310 [sym_if]; STATE 33 [sym_ifElse; sym_while; sym_repeat; sym_for; sym_foreach;
   sym_try; sym_case; sym_block; sym_asm; sym_with; sym_raise; sym_statement; sym_goto;
   sym__statement]; STATE 15141 [sym_assignment]; STATE 11829 [sym_varAssignDef];
   STATE 15141 [sym_varDef; sym_constDef]; STATE 8220 [sym__expr; sym_exprConditional];
   STATE 7765 [sym__ref; sym_lambda; sym_inherited; sym_exprDot; sym_exprDeref; sym_exprAs;
   sym_exprTpl; sym_exprSubscript; sym_exprCall]; STATE 8220 [sym_exprBinary; sym_exprUnary];
   STATE 7765 [sym_exprParens; sym_exprBrackets]; STATE 12283 [sym_genericDot; sym_genericTpl;
   sym__genericName]; STATE 7765 [sym__literal; sym_literalString];
   STATE 6994 [sym__literalString; sym_literalChar]; STATE 7765 [sym_literalNumber];
   STATE 7888 [sym__literalInt; sym__literalFloat]; STATE 33 [sym_defProc; sym_declProcFwd;
   sym_declUses]; STATE 12 [sym__ppIf]; STATE 52 [sym__ppElse]; STATE 10365 [sym__ppEndIf];
   STATE 33 [sym_ppBlock; sym_declExports; sym_declTypes; sym_declVars; sym_declConsts;
   sym_declType]; STATE 58 [sym_declProc]; STATE 33 [sym_declVar; sym_declConst; sym_declLabels;
   sym_declField; sym_declProp]; STATE 1009 [sym__declProc]; STATE 1309 [sym__declOperator];
   STATE 2759 [sym_rttiAttributes]; STATE 13110 [aux_sym_genericArg_repeat1];
   STATE 6994 [aux_sym_literalString_repeat1]; STATE 33 [aux_sym_ppBlock_repeat1];
   STATE 11774 [aux_sym_ppBlock_repeat2]; STATE 5428 [aux_sym_declVar_repeat1];
   STATE 2888 [aux_sym_rttiAttributes_repeat2]; ACTIONS 41 [anon_sym_SEMI];
   ACTIONS 177 [anon_sym_COMMA]; ACTIONS 45 [anon_sym_LBRACK]; ACTIONS 47 [anon_sym_LPAREN];
   ACTIONS 49 [aux_sym__literalString_token1]; ACTIONS 51 [anon_sym_POUND];
   ACTIONS 53 [aux_sym__literalInt_token1]; ACTIONS 55 [aux_sym__literalInt_token2;
   aux_sym__literalInt_token3]; ACTIONS 53 [aux_sym__literalFloat_token1];
   ACTIONS 11 [aux_sym_ppUsesBlock_token1]; ACTIONS 57 [aux_sym_ppUsesBlock_token2];
   ACTIONS 179 [aux_sym_ppUsesBlock_token3]; ACTIONS 61 [sym_kAdd; sym_kSub];
   ACTIONS 63 [sym_kAt]; ACTIONS 65 [sym_kTrue; sym_kFalse]; ACTIONS 3 [sym__space];
   ACTIONS 5 [sym_ppDirective]; ACTIONS 3 [sym_comment]; ACTIONS 65 [sym_ppFragmentExpr];
   ACTIONS 49 [sym__literalStringMultiline]; ACTIONS 67 [sym_identifier];
   ACTIONS 69 [sym_kDefault; sym_kNodefault; sym_kDispId]; ACTIONS 71 [sym_kGeneric];
   ACTIONS 73 [sym_kSpecialize]; ACTIONS 75 [sym_kOperator]; ACTIONS 69 [sym_kPublic;
   sym_kStatic; sym_kVirtual; sym_kAbstract; sym_kDynamic; sym_kOverride; sym_kOverload;
   sym_kReintroduce; sym_kStdcall; sym_kCdecl; sym_kCppdecl; sym_kPascal; sym_kRegister;
   sym_kMwpascal; sym_kMessage; sym_kDeprecated; sym_kExperimental; sym_kPlatform;
   sym_kUnimplemented; sym_kCvar; sym_kExport; sym_kFar; sym_kNear; sym_kSafecall;
   sym_kAssembler; sym_kNostackframe; sym_kInterrupt; sym_kNoreturn; sym_kIocheck; sym_kLocal;
   sym_kHardfloat; sym_kSoftfloat; sym_kMs_abi_default; sym_kMs_abi_cdecl; sym_kSaveregisters;
   sym_kSysv_abi_default; sym_kSysv_abi_cdecl; sym_kVectorcall; sym_kVarargs; sym_kWinapi;
   sym_kAlias]; ACTIONS 83 [sym_kAsm]; ACTIONS 85 [sym_kBegin]; ACTIONS 87 [sym_kCase];
   ACTIONS 89 [sym_kClass]; ACTIONS 91 [sym_kConst]; ACTIONS 93 [sym_kConstructor;
   sym_kDestructor]; ACTIONS 95 [sym_kExports]; ACTIONS 97 [sym_kFor];
   ACTIONS 99 [sym_kFunction]; ACTIONS 101 [sym_kGoto]; ACTIONS 103 [sym_kIf];
   ACTIONS 105 [sym_kInherited]; ACTIONS 107 [sym_kLabel]; ACTIONS 65 [sym_kNil];
   ACTIONS 63 [sym_kNot]; ACTIONS 99 [sym_kProcedure]; ACTIONS 109 [sym_kProperty];
   ACTIONS 111 [sym_kRaise]; ACTIONS 113 [sym_kRepeat]; ACTIONS 115 [sym_kResourcestring];
   ACTIONS 117 [sym_kString]; ACTIONS 119 [sym_kThreadvar]; ACTIONS 121 [sym_kTry];
   ACTIONS 123 [sym_kType]; ACTIONS 125 [sym_kUses]; ACTIONS 127 [sym_kVar];
   ACTIONS 129 [sym_kWhile]; ACTIONS 131 [sym_kWith]].

(** State 26. *)
Definition ts_parse_table_26 : parse_row :=
  [STATE 1310 [sym_if]; STATE 51 [sym_ifElse; sym_while; sym_repeat; sym_for; sym_foreach;
   sym_try; sym_case; sym_block; sym_asm; sym_with; sym_raise; sym_statement; sym_goto;
   sym__statement]; STATE 15141 [sym_assignment]; STATE 11829 [sym_varAssignDef];
   STATE 15141 [sym_varDef; sym_constDef]; STATE 8220 [sym__expr; sym_exprConditional];
   STATE 7765 [sym__ref; sym_lambda; sym_inherited; sym_exprDot; sym_exprDeref; sym_exprAs;
   sym_exprTpl; sym_exprSubscript; sym_exprCall]; STATE 8220 [sym_exprBinary; sym_exprUnary];
   STATE 7765 [sym_exprParens; sym_exprBrackets]; STATE 12283 [sym_genericDot; sym_genericTpl;
   sym__genericName]; STATE 7765 [sym__literal; sym_literalString];
   STATE 6994 [sym__literalString; sym_literalChar]; STATE 7765 [sym_literalNumber];
   STATE 7888 [sym__literalInt; sym__literalFloat]; STATE 51 [sym_defProc; sym_declProcFwd;
   sym_declUses]; STATE 12 [sym__ppIf]; STATE 52 [sym__ppElse]; STATE 10397 [sym__ppEndIf];
   STATE 51 [sym_ppBlock; sym_declExports; sym_declTypes; sym_declVars; sym_declConsts;
   sym_declType]; STATE 58 [sym_declProc]; STATE 51 [sym_declVar; sym_declConst; sym_declLabels;
   sym_declField; sym_declProp]; STATE 1009 [sym__declProc]; STATE 1309 [sym__declOperator];
   STATE 2759 [sym_rttiAttributes]; STATE 13110 [aux_sym_genericArg_repeat1];
   STATE 6994 [aux_sym_literalString_repeat1]; STATE 51 [aux_sym_ppBlock_repeat1];
   STATE 11997 [aux_sym_ppBlock_repeat2]; STATE 5428 [aux_sym_declVar_repeat1];
   STATE 2888 [aux_sym_rttiAttributes_repeat2]; ACTIONS 41 [anon_sym_SEMI];
   ACTIONS 149 [anon_sym_COMMA]; ACTIONS 45 [anon_sym_LBRACK]; ACTIONS 47 [anon_sym_LPAREN];
   ACTIONS 49 [aux_sym__literalString_token1]; ACTIONS 51 [anon_sym_POUND];
   ACTIONS 53 [aux_sym__literalInt_token1]; ACTIONS 55 [aux_sym__literalInt_token2;
   aux_sym__literalInt_token3]; ACTIONS 53 [aux_sym__literalFloat_token1];
   ACTIONS 11 [aux_sym_ppUsesBlock_token1]; ACTIONS 57 [aux_sym_ppUsesBlock_token2];
   ACTIONS 175 [aux_sym_ppUsesBlock_token3]; ACTIONS 61 [sym_kAdd; sym_kSub];
   ACTIONS 63 [sym_kAt]; ACTIONS 65 [sym_kTrue; sym_kFalse]; ACTIONS 3 [sym__space];
   ACTIONS 5 [sym_ppDirective]; ACTIONS 3 [sym_comment]; ACTIONS 65 [sym_ppFragmentExpr];
   ACTIONS 49 [sym__literalStringMultiline]; ACTIONS 67 [sym_identifier];
   ACTIONS 69 [sym_kDefault; sym_kNodefault; sym_kDispId]; ACTIONS 71 [sym_kGeneric];
   ACTIONS 73 [sym_kSpecialize]; ACTIONS 75 [sym_kOperator]; ACTIONS 69 [sym_kPublic;
   sym_kStatic; sym_kVirtual; sym_kAbstract; sym_kDynamic; sym_kOverride; sym_kOverload;
   sym_kReintroduce; sym_kStdcall; sym_kCdecl; sym_kCppdecl; sym_kPascal; sym_kRegister;
   sym_kMwpascal; sym_kMessage; sym_kDeprecated; sym_kExperimental; sym_kPlatform;
   sym_kUnimplemented; sym_kCvar; sym_kExport; sym_kFar; sym_kNear; sym_kSafecall;
   sym_kAssembler; sym_kNostackframe; sym_kInterrupt; sym_kNoreturn; sym_kIocheck; sym_kLocal;
   sym_kHardfloat; sym_kSoftfloat; sym_kMs_abi_default; sym_kMs_abi_cdecl; sym_kSaveregisters;
   sym_kSysv_abi_default; sym_kSysv_abi_cdecl; sym_kVectorcall; sym_kVarargs; sym_kWinapi;
   sym_kAlias]; ACTIONS 83 [sym_kAsm]; ACTIONS 85 [sym_kBegin]; ACTIONS 87 [sym_kCase];
   ACTIONS 89 [sym_kClass]; ACTIONS 91 [sym_kConst]; ACTIONS 93 [sym_kConstructor;
   sym_kDestructor]; ACTIONS 95 [sym_kExports]; ACTIONS 97 [sym_kFor];
   ACTIONS 99 [sym_kFunction]; ACTIONS 101 [sym_kGoto]; ACTIONS 103 [sym_kIf];
   ACTIONS 105 [sym_kInherited]; ACTIONS 107 [sym_kLabel]; ACTIONS 65 [sym_kNil];
   ACTIONS 63 [sym_kNot]; ACTIONS 99 [sym_kProcedure]; ACTIONS 109 [sym_kProperty];
   ACTIONS 111 [sym_kRaise]; ACTIONS 113 [sym_kRepeat]; ACTIONS 115 [sym_kResourcestring];
   ACTIONS 117 [sym_kString]; ACTIONS 119 [sym_kThreadvar]; ACTIONS 121 [sym_kTry];
   ACTIONS 123 [sym_kType]; ACTIONS 125 [sym_kUses]; ACTIONS 127 [sym_kVar];
   ACTIONS 129 [sym_kWhile]; ACTIONS 131 [sym_kWith]].

(** State 27. *)
Definition ts_parse_table_27 : parse_row :=
  [STATE 1310 [sym_if]; STATE 14 [sym_ifElse; sym_while; sym_repeat; sym_for; sym_foreach;
   sym_try; sym_case; sym_block; sym_asm; sym_with; sym_raise; sym_statement; sym_goto;
   sym__statement]; STATE 15141 [sym_assignment]; STATE 11829 [sym_varAssignDef];
   STATE 15141 [sym_varDef; sym_constDef]; STATE 8220 [sym__expr; sym_exprConditional];
   STATE 7765 [sym__ref; sym_lambda; sym_inherited; sym_exprDot; sym_exprDeref; sym_exprAs;
   sym_exprTpl; sym_exprSubscript; sym_exprCall]; STATE 8220 [sym_exprBinary; sym_exprUnary];
   STATE 7765 [sym_exprParens; sym_exprBrackets]; STATE 12283 [sym_genericDot; sym_genericTpl;
   sym__genericName]; STATE 7765 [sym__literal; sym_literalString];
   STATE 6994 [sym__literalString; sym_literalChar]; STATE 7765 [sym_literalNumber];
   STATE 7888 [sym__literalInt; sym__literalFloat]; STATE 14 [sym_defProc; sym_declProcFwd;
   sym_declUses]; STATE 12 [sym__ppIf]; STATE 52 [sym__ppElse]; STATE 10416 [sym__ppEndIf];
   STATE 14 [sym_ppBlock; sym_declExports; sym_declTypes; sym_declVars; sym_declConsts;
   sym_declType]; STATE 54 [sym_declProc]; STATE 14 [sym_declVar; sym_declConst; sym_declLabels;
   sym_declField; sym_declProp]; STATE 1009 [sym__declProc]; STATE 1309 [sym__declOperator];
   STATE 2759 [sym_rttiAttributes]; STATE 13110 [aux_sym_genericArg_repeat1];
   STATE 6994 [aux_sym_literalString_repeat1]; STATE 14 [aux_sym_ppBlock_repeat1];
   STATE 11842 [aux_sym_ppBlock_repeat2]; STATE 5428 [aux_sym_declVar_repeat1];
   STATE 2888 [aux_sym_rttiAttributes_repeat2]; ACTIONS 41 [anon_sym_SEMI];
   ACTIONS 181 [anon_sym_COMMA]; ACTIONS 45 [anon_sym_LBRACK]; ACTIONS 47 [anon_sym_LPAREN];
   ACTIONS 49 [aux_sym__literalString_token1]; ACTIONS 51 [anon_sym_POUND];
   ACTIONS 53 [aux_sym__literalInt_token1]; ACTIONS 55 [aux_sym__literalInt_token2;
   aux_sym__literalInt_token3]; ACTIONS 53 [aux_sym__literalFloat_token1];
   ACTIONS 11 [aux_sym_ppUsesBlock_token1]; ACTIONS 57 [aux_sym_ppUsesBlock_token2];
   ACTIONS 157 [aux_sym_ppUsesBlock_token3]; ACTIONS 61 [sym_kAdd; sym_kSub];
   ACTIONS 63 [sym_kAt]; ACTIONS 65 [sym_kTrue; sym_kFalse]; ACTIONS 3 [sym__space];
   ACTIONS 5 [sym_ppDirective]; ACTIONS 3 [sym_comment]; ACTIONS 65 [sym_ppFragmentExpr];
   ACTIONS 49 [sym__literalStringMultiline]; ACTIONS 67 [sym_identifier];
   ACTIONS 69 [sym_kDefault; sym_kNodefault; sym_kDispId]; ACTIONS 71 [sym_kGeneric];
   ACTIONS 73 [sym_kSpecialize]; ACTIONS 75 [sym_kOperator]; ACTIONS 69 [sym_kPublic;
   sym_kStatic; sym_kVirtual; sym_kAbstract; sym_kDynamic; sym_kOverride; sym_kOverload;
   sym_kReintroduce; sym_kStdcall; sym_kCdecl; sym_kCppdecl; sym_kPascal; sym_kRegister;
   sym_kMwpascal; sym_kMessage; sym_kDeprecated; sym_kExperimental; sym_kPlatform;
   sym_kUnimplemented; sym_kCvar; sym_kExport; sym_kFar; sym_kNear; sym_kSafecall;
   sym_kAssembler; sym_kNostackframe; sym_kInterrupt; sym_kNoreturn; sym_kIocheck; sym_kLocal;
   sym_kHardfloat; sym_kSoftfloat; sym_kMs_abi_default; sym_kMs_abi_cdecl; sym_kSaveregisters;
   sym_kSysv_abi_default; sym_kSysv_abi_cdecl; sym_kVectorcall; sym_kVarargs; sym_kWinapi;
   sym_kAlias]; ACTIONS 83 [sym_kAsm]; ACTIONS 85 [sym_kBegin]; ACTIONS 87 [sym_kCase];
   ACTIONS 89 [sym_kClass]; ACTIONS 91 [sym_kConst]; ACTIONS 93 [sym_kConstructor;
   sym_kDestructor]; ACTIONS 95 [sym_kExports]; ACTIONS 97 [sym_kFor];
   ACTIONS 99 [sym_kFunction]; ACTIONS 101 [sym_kGoto]; ACTIONS 103 [sym_kIf];
   ACTIONS 105 [sym_kInherited]; ACTIONS 107 [sym_kLabel]; ACTIONS 65 [sym_kNil];
   ACTIONS 63 [sym_kNot]; ACTIONS 99 [sym_kProcedure]; ACTIONS 109 [sym_kProperty];
   ACTIONS 111 [sym_kRaise]; ACTIONS 113 [sym_kRepeat]; ACTIONS 115 [sym_kResourcestring];
   ACTIONS 117 [sym_kString]; ACTIONS 119 [sym_kThreadvar]; ACTIONS 121 [sym_kTry];
   ACTIONS 123 [sym_kType]; ACTIONS 125 [sym_kUses]; ACTIONS 127 [sym_kVar];
   ACTIONS 129 [sym_kWhile]; ACTIONS 131 [sym_kWith]].

(** State 28. *)
Definition ts_parse_table_28 : parse_row :=
  [STATE 1310 [sym_if]; STATE 35 [sym_ifElse; sym_while; sym_repeat; sym_for; sym_foreach;
   sym_try; sym_case; sym_block; sym_asm; sym_with; sym_raise; sym_statement; sym_goto;
   sym__statement]; STATE 15141 [sym_assignment]; STATE 11829 [sym_varAssignDef];
   STATE 15141 [sym_varDef; sym_constDef]; STATE 8220 [sym__expr; sym_exprConditional];
   STATE 7765 [sym__ref; sym_lambda; sym_inherited; sym_exprDot; sym_exprDeref; sym_exprAs;
   sym_exprTpl; sym_exprSubscript; sym_exprCall]; STATE 8220 [sym_exprBinary; sym_exprUnary];
   STATE 7765 [sym_exprParens; sym_exprBrackets]; STATE 12283 [sym_genericDot; sym_genericTpl;
   sym__genericName]; STATE 7765 [sym__literal; sym_literalString];
   STATE 6994 [sym__literalString; sym_literalChar]; STATE 7765 [sym_literalNumber];
   STATE 7888 [sym__literalInt; sym__literalFloat]; STATE 35 [sym_defProc; sym_declProcFwd;
   sym_declUses]; STATE 12 [sym__ppIf]; STATE 52 [sym__ppElse]; STATE 2711 [sym__ppEndIf];
   STATE 35 [sym_ppBlock; sym_declExports; sym_declTypes; sym_declVars; sym_declConsts;
   sym_declType]; STATE 58 [sym_declProc]; STATE 35 [sym_declVar; sym_declConst; sym_declLabels;
   sym_declField; sym_declProp]; STATE 1009 [sym__declProc]; STATE 1309 [sym__declOperator];
   STATE 2759 [sym_rttiAttributes]; STATE 13110 [aux_sym_genericArg_repeat1];
   STATE 6994 [aux_sym_literalString_repeat1]; STATE 35 [aux_sym_ppBlock_repeat1];
   STATE 11705 [aux_sym_ppBlock_repeat2]; STATE 5428 [aux_sym_declVar_repeat1];
   STATE 2888 [aux_sym_rttiAttributes_repeat2]; ACTIONS 41 [anon_sym_SEMI];
   ACTIONS 183 [anon_sym_COMMA]; ACTIONS 45 [anon_sym_LBRACK]; ACTIONS 47 [anon_sym_LPAREN];
   ACTIONS 49 [aux_sym__literalString_token1]; ACTIONS 51 [anon_sym_POUND];
   ACTIONS 53 [aux_sym__literalInt_token1]; ACTIONS 55 [aux_sym__literalInt_token2;
   aux_sym__literalInt_token3]; ACTIONS 53 [aux_sym__literalFloat_token1];
   ACTIONS 11 [aux_sym_ppUsesBlock_token1]; ACTIONS 57 [aux_sym_ppUsesBlock_token2];
   ACTIONS 185 [aux_sym_ppUsesBlock_token3]; ACTIONS 61 [sym_kAdd; sym_kSub];
   ACTIONS 63 [sym_kAt]; ACTIONS 65 [sym_kTrue; sym_kFalse]; ACTIONS 3 [sym__space];
   ACTIONS 5 [sym_ppDirective]; ACTIONS 3 [sym_comment]; ACTIONS 65 [sym_ppFragmentExpr];
   ACTIONS 49 [sym__literalStringMultiline]; ACTIONS 67 [sym_identifier];
   ACTIONS 69 [sym_kDefault; sym_kNodefault; sym_kDispId]; ACTIONS 71 [sym_kGeneric];
   ACTIONS 73 [sym_kSpecialize]; ACTIONS 75 [sym_kOperator]; ACTIONS 69 [sym_kPublic;
   sym_kStatic; sym_kVirtual; sym_kAbstract; sym_kDynamic; sym_kOverride; sym_kOverload;
   sym_kReintroduce; sym_kStdcall; sym_kCdecl; sym_kCppdecl; sym_kPascal; sym_kRegister;
   sym_kMwpascal; sym_kMessage; sym_kDeprecated; sym_kExperimental; sym_kPlatform;
   sym_kUnimplemented; sym_kCvar; sym_kExport; sym_kFar; sym_kNear; sym_kSafecall;
   sym_kAssembler; sym_kNostackframe; sym_kInterrupt; sym_kNoreturn; sym_kIocheck; sym_kLocal;
   sym_kHardfloat; sym_kSoftfloat; sym_kMs_abi_default; sym_kMs_abi_cdecl; sym_kSaveregisters;
   sym_kSysv_abi_default; sym_kSysv_abi_cdecl; sym_kVectorcall; sym_kVarargs; sym_kWinapi;
   sym_kAlias]; ACTIONS 83 [sym_kAsm]; ACTIONS 85 [sym_kBegin]; ACTIONS 87 [sym_kCase];
   ACTIONS 89 [sym_kClass]; ACTIONS 91 [sym_kConst]; ACTIONS 93 [sym_kConstructor;
   sym_kDestructor]; ACTIONS 95 [sym_kExports]; ACTIONS 97 [sym_kFor];
   ACTIONS 99 [sym_kFunction]; ACTIONS 101 [sym_kGoto]; ACTIONS 103 [sym_kIf];
   ACTIONS 105 [sym_kInherited]; ACTIONS 107 [sym_kLabel]; ACTIONS 65 [sym_kNil];
   ACTIONS 63 [sym_kNot]; ACTIONS 99 [sym_kProcedure]; ACTIONS 109 [sym_kProperty];
   ACTIONS 111 [sym_kRaise]; ACTIONS 113 [sym_kRepeat]; ACTIONS 115 [sym_kResourcestring];
   ACTIONS 117 [sym_kString]; ACTIONS 119 [sym_kThreadvar]; ACTIONS 121 [sym_kTry];
   ACTIONS 123 [sym_kType]; ACTIONS 125 [sym_kUses]; ACTIONS 127 [sym_kVar];
   ACTIONS 129 [sym_kWhile]; ACTIONS 131 [sym_kWith]].

(** State 29. *)
Definition ts_parse_table_29 : parse_row :=
  [STATE 1310 [sym_if]; STATE 51 [sym_ifElse; sym_while; sym_repeat; sym_for; sym_foreach;
   sym_try; sym_case; sym_block; sym_asm; sym_with; sym_raise; sym_statement; sym_goto;
   sym__statement]; STATE 15141 [sym_assignment]; STATE 11829 [sym_varAssignDef];
   STATE 15141 [sym_varDef; sym_constDef]; STATE 8220 [sym__expr; sym_exprConditional];
   STATE 7765 [sym__ref; sym_lambda; sym_inherited; sym_exprDot; sym_exprDeref; sym_exprAs;
   sym_exprTpl; sym_exprSubscript; sym_exprCall]; STATE 8220 [sym_exprBinary; sym_exprUnary];
   STATE 7765 [sym_exprParens; sym_exprBrackets]; STATE 12283 [sym_genericDot; sym_genericTpl;
   sym__genericName]; STATE 7765 [sym__literal; sym_literalString];
   STATE 6994 [sym__literalString; sym_literalChar]; STATE 7765 [sym_literalNumber];
   STATE 7888 [sym__literalInt; sym__literalFloat]; STATE 51 [sym_defProc; sym_declProcFwd;
   sym_declUses]; STATE 12 [sym__ppIf]; STATE 52 [sym__ppElse]; STATE 10428 [sym__ppEndIf];
   STATE 51 [sym_ppBlock; sym_declExports; sym_declTypes; sym_declVars; sym_declConsts;
   sym_declType]; STATE 58 [sym_declProc]; STATE 51 [sym_declVar; sym_declConst; sym_declLabels;
   sym_declField; sym_declProp]; STATE 1009 [sym__declProc]; STATE 1309 [sym__declOperator];
   STATE 2759 [sym_rttiAttributes]; STATE 13110 [aux_sym_genericArg_repeat1];
   STATE 6994 [aux_sym_literalString_repeat1]; STATE 51 [aux_sym_ppBlock_repeat1];
   STATE 11986 [aux_sym_ppBlock_repeat2]; STATE 5428 [aux_sym_declVar_repeat1];
   STATE 2888 [aux_sym_rttiAttributes_repeat2]; ACTIONS 41 [anon_sym_SEMI];
   ACTIONS 149 [anon_sym_COMMA]; ACTIONS 45 [anon_sym_LBRACK]; ACTIONS 47 [anon_sym_LPAREN];
   ACTIONS 49 [aux_sym__literalString_token1]; ACTIONS 51 [anon_sym_POUND];
   ACTIONS 53 [aux_sym__literalInt_token1]; ACTIONS 55 [aux_sym__literalInt_token2;
   aux_sym__literalInt_token3]; ACTIONS 53 [aux_sym__literalFloat_token1];
   ACTIONS 11 [aux_sym_ppUsesBlock_token1]; ACTIONS 57 [aux_sym_ppUsesBlock_token2];
   ACTIONS 161 [aux_sym_ppUsesBlock_token3]; ACTIONS 61 [sym_kAdd; sym_kSub];
   ACTIONS 63 [sym_kAt]; ACTIONS 65 [sym_kTrue; sym_kFalse]; ACTIONS 3 [sym__space];
   ACTIONS 5 [sym_ppDirective]; ACTIONS 3 [sym_comment]; ACTIONS 65 [sym_ppFragmentExpr];
   ACTIONS 49 [sym__literalStringMultiline]; ACTIONS 67 [sym_identifier];
   ACTIONS 69 [sym_kDefault; sym_kNodefault; sym_kDispId]; ACTIONS 71 [sym_kGeneric];
   ACTIONS 73 [sym_kSpecialize]; ACTIONS 75 [sym_kOperator]; ACTIONS 69 [sym_kPublic;
   sym_kStatic; sym_kVirtual; sym_kAbstract; sym_kDynamic; sym_kOverride; sym_kOverload;
   sym_kReintroduce; sym_kStdcall; sym_kCdecl; sym_kCppdecl; sym_kPascal; sym_kRegister;
   sym_kMwpascal; sym_kMessage; sym_kDeprecated; sym_kExperimental; sym_kPlatform;
   sym_kUnimplemented; sym_kCvar; sym_kExport; sym_kFar; sym_kNear; sym_kSafecall;
   sym_kAssembler; sym_kNostackframe; sym_kInterrupt; sym_kNoreturn; sym_kIocheck; sym_kLocal;
   sym_kHardfloat; sym_kSoftfloat; sym_kMs_abi_default; sym_kMs_abi_cdecl; sym_kSaveregisters;
   sym_kSysv_abi_default; sym_kSysv_abi_cdecl; sym_kVectorcall; sym_kVarargs; sym_kWinapi;
   sym_kAlias]; ACTIONS 83 [sym_kAsm]; ACTIONS 85 [sym_kBegin]; ACTIONS 87 [sym_kCase];
   ACTIONS 89 [sym_kClass]; ACTIONS 91 [sym_kConst]; ACTIONS 93 [sym_kConstructor;
   sym_kDestructor]; ACTIONS 95 [sym_kExports]; ACTIONS 97 [sym_kFor];
   ACTIONS 99 [sym_kFunction]; ACTIONS 101 [sym_kGoto]; ACTIONS 103 [sym_kIf];
   ACTIONS 105 [sym_kInherited]; ACTIONS 107 [sym_kLabel]; ACTIONS 65 [sym_kNil];
   ACTIONS 63 [sym_kNot]; ACTIONS 99 [sym_kProcedure]; ACTIONS 109 [sym_kProperty];
   ACTIONS 111 [sym_kRaise]; ACTIONS 113 [sym_kRepeat]; ACTIONS 115 [sym_kResourcestring];
   ACTIONS 117 [sym_kString]; ACTIONS 119 [sym_kThreadvar]; ACTIONS 121 [sym_kTry];
   ACTIONS 123 [sym_kType]; ACTIONS 125 [sym_kUses]; ACTIONS 127 [sym_kVar];
   ACTIONS 129 [sym_kWhile]; ACTIONS 131 [sym_kWith]].

(** State 30. *)
Definition ts_parse_table_30 : parse_row :=
  [STATE 1310 [sym_if]; STATE 39 [sym_ifElse; sym_while; sym_repeat; sym_for; sym_foreach;
   sym_try; sym_case; sym_block; sym_asm; sym_with; sym_raise; sym_statement; sym_goto;
   sym__statement]; STATE 15141 [sym_assignment]; STATE 11829 [sym_varAssignDef];
   STATE 15141 [sym_varDef; sym_constDef]; STATE 8220 [sym__expr; sym_exprConditional];
   STATE 7765 [sym__ref; sym_lambda; sym_inherited; sym_exprDot; sym_exprDeref; sym_exprAs;
   sym_exprTpl; sym_exprSubscript; sym_exprCall]; STATE 8220 [sym_exprBinary; sym_exprUnary];
   STATE 7765 [sym_exprParens; sym_exprBrackets]; STATE 12283 [sym_genericDot; sym_genericTpl;
   sym__genericName]; STATE 7765 [sym__literal; sym_literalString];
   STATE 6994 [sym__literalString; sym_literalChar]; STATE 7765 [sym_literalNumber];
   STATE 7888 [sym__literalInt; sym__literalFloat]; STATE 39 [sym_defProc; sym_declProcFwd;
   sym_declUses]; STATE 12 [sym__ppIf]; STATE 52 [sym__ppElse]; STATE 10304 [sym__ppEndIf];
   STATE 39 [sym_ppBlock; sym_declExports; sym_declTypes; sym_declVars; sym_declConsts;
   sym_declType]; STATE 58 [sym_declProc]; STATE 39 [sym_declVar; sym_declConst; sym_declLabels;
   sym_declField; sym_declProp]; STATE 1009 [sym__declProc]; STATE 1309 [sym__declOperator];
   STATE 2759 [sym_rttiAttributes]; STATE 13110 [aux_sym_genericArg_repeat1];
   STATE 6994 [aux_sym_literalString_repeat1]; STATE 39 [aux_sym_ppBlock_repeat1];
   STATE 11965 [aux_sym_ppBlock_repeat2]; STATE 5428 [aux_sym_declVar_repeat1];
   STATE 2888 [aux_sym_rttiAttributes_repeat2]; ACTIONS 41 [anon_sym_SEMI];
   ACTIONS 187 [anon_sym_COMMA]; ACTIONS 45 [anon_sym_LBRACK]; ACTIONS 47 [anon_sym_LPAREN];
   ACTIONS 49 [aux_sym__literalString_token1]; ACTIONS 51 [anon_sym_POUND];
   ACTIONS 53 [aux_sym__literalInt_token1]; ACTIONS 55 [aux_sym__literalInt_token2;
   aux_sym__literalInt_token3]; ACTIONS 53 [aux_sym__literalFloat_token1];
   ACTIONS 11 [aux_sym_ppUsesBlock_token1]; ACTIONS 57 [aux_sym_ppUsesBlock_token2];
   ACTIONS 189 [aux_sym_ppUsesBlock_token3]; ACTIONS 61 [sym_kAdd; sym_kSub];
   ACTIONS 63 [sym_kAt]; ACTIONS 65 [sym_kTrue; sym_kFalse]; ACTIONS 3 [sym__space];
   ACTIONS 5 [sym_ppDirective]; ACTIONS 3 [sym_comment]; ACTIONS 65 [sym_ppFragmentExpr];
   ACTIONS 49 [sym__literalStringMultiline]; ACTIONS 67 [sym_identifier];
   ACTIONS 69 [sym_kDefault; sym_kNodefault; sym_kDispId]; ACTIONS 71 [sym_kGeneric];
   ACTIONS 73 [sym_kSpecialize]; ACTIONS 75 [sym_kOperator]; ACTIONS 69 [sym_kPublic;
   sym_kStatic; sym_kVirtual; sym_kAbstract; sym_kDynamic; sym_kOverride; sym_kOverload;
   sym_kReintroduce; sym_kStdcall; sym_kCdecl; sym_kCppdecl; sym_kPascal; sym_kRegister;
   sym_kMwpascal; sym_kMessage; sym_kDeprecated; sym_kExperimental; sym_kPlatform;
   sym_kUnimplemented; sym_kCvar; sym_kExport; sym_kFar; sym_kNear; sym_kSafecall;
   sym_kAssembler; sym_kNostackframe; sym_kInterrupt; sym_kNoreturn; sym_kIocheck; sym_kLocal;
   sym_kHardfloat; sym_kSoftfloat; sym_kMs_abi_default; sym_kMs_abi_cdecl; sym_kSaveregisters;
   sym_kSysv_abi_default; sym_kSysv_abi_cdecl; sym_kVectorcall; sym_kVarargs; sym_kWinapi;
   sym_kAlias]; ACTIONS 83 [sym_kAsm]; ACTIONS 85 [sym_kBegin]; ACTIONS 87 [sym_kCase];
   ACTIONS 89 [sym_kClass]; ACTIONS 91 [sym_kConst]; ACTIONS 93 [sym_kConstructor;
   sym_kDestructor]; ACTIONS 95 [sym_kExports]; ACTIONS 97 [sym_kFor];
   ACTIONS 99 [sym_kFunction]; ACTIONS 101 [sym_kGoto]; ACTIONS 103 [sym_kIf];
   ACTIONS 105 [sym_kInherited]; ACTIONS 107 [sym_kLabel]; ACTIONS 65 [sym_kNil];
   ACTIONS 63 [sym_kNot]; ACTIONS 99 [sym_kProcedure]; ACTIONS 109 [sym_kProperty];
   ACTIONS 111 [sym_kRaise]; ACTIONS 113 [sym_kRepeat]; ACTIONS 115 [sym_kResourcestring];
   ACTIONS 117 [sym_kString]; ACTIONS 119 [sym_kThreadvar]; ACTIONS 121 [sym_kTry];
   ACTIONS 123 [sym_kType]; ACTIONS 125 [sym_kUses]; ACTIONS 127 [sym_kVar];
   ACTIONS 129 [sym_kWhile]; ACTIONS 131 [sym_kWith]].

(** State 31. *)
Definition ts_parse_table_31 : parse_row :=
  [STATE 1310 [sym_if]; STATE 51 [sym_ifElse; sym_while; sym_repeat; sym_for; sym_foreach;
   sym_try; sym_case; sym_block; sym_asm; sym_with; sym_raise; sym_statement; sym_goto;
   sym__statement]; STATE 15141 [sym_assignment]; STATE 11829 [sym_varAssignDef];
   STATE 15141 [sym_varDef; sym_constDef]; STATE 8220 [sym__expr; sym_exprConditional];
   STATE 7765 [sym__ref; sym_lambda; sym_inherited; sym_exprDot; sym_exprDeref; sym_exprAs;
   sym_exprTpl; sym_exprSubscript; sym_exprCall]; STATE 8220 [sym_exprBinary; sym_exprUnary];
   STATE 7765 [sym_exprParens; sym_exprBrackets]; STATE 12283 [sym_genericDot; sym_genericTpl;
   sym__genericName]; STATE 7765 [sym__literal; sym_literalString];
   STATE 6994 [sym__literalString; sym_literalChar]; STATE 7765 [sym_literalNumber];
   STATE 7888 [sym__literalInt; sym__literalFloat]; STATE 51 [sym_defProc; sym_declProcFwd;
   sym_declUses]; STATE 12 [sym__ppIf]; STATE 52 [sym__ppElse]; STATE 9748 [sym__ppEndIf];
   STATE 51 [sym_ppBlock; sym_declExports; sym_declTypes; sym_declVars; sym_declConsts;
   sym_declType]; STATE 58 [sym_declProc]; STATE 51 [sym_declVar; sym_declConst; sym_declLabels;
   sym_declField; sym_declProp]; STATE 1009 [sym__declProc]; STATE 1309 [sym__declOperator];
   STATE 2759 [sym_rttiAttributes]; STATE 13110 [aux_sym_genericArg_repeat1];
   STATE 6994 [aux_sym_literalString_repeat1]; STATE 51 [aux_sym_ppBlock_repeat1];
   STATE 12024 [aux_sym_ppBlock_repeat2]; STATE 5428 [aux_sym_declVar_repeat1];
   STATE 2888 [aux_sym_rttiAttributes_repeat2]; ACTIONS 41 [anon_sym_SEMI];
   ACTIONS 149 [anon_sym_COMMA]; ACTIONS 45 [anon_sym_LBRACK]; ACTIONS 47 [anon_sym_LPAREN];
   ACTIONS 49 [aux_sym__literalString_token1]; ACTIONS 51 [anon_sym_POUND];
   ACTIONS 53 [aux_sym__literalInt_token1]; ACTIONS 55 [aux_sym__literalInt_token2;
   aux_sym__literalInt_token3]; ACTIONS 53 [aux_sym__literalFloat_token1];
   ACTIONS 11 [aux_sym_ppUsesBlock_token1]; ACTIONS 57 [aux_sym_ppUsesBlock_token2];
   ACTIONS 59 [aux_sym_ppUsesBlock_token3]; ACTIONS 61 [sym_kAdd; sym_kSub];
   ACTIONS 63 [sym_kAt]; ACTIONS 65 [sym_kTrue; sym_kFalse]; ACTIONS 3 [sym__space];
   ACTIONS 5 [sym_ppDirective]; ACTIONS 3 [sym_comment]; ACTIONS 65 [sym_ppFragmentExpr];
   ACTIONS 49 [sym__literalStringMultiline]; ACTIONS 67 [sym_identifier];
   ACTIONS 69 [sym_kDefault; sym_kNodefault; sym_kDispId]; ACTIONS 71 [sym_kGeneric];
   ACTIONS 73 [sym_kSpecialize]; ACTIONS 75 [sym_kOperator]; ACTIONS 69 [sym_kPublic;
   sym_kStatic; sym_kVirtual; sym_kAbstract; sym_kDynamic; sym_kOverride; sym_kOverload;
   sym_kReintroduce; sym_kStdcall; sym_kCdecl; sym_kCppdecl; sym_kPascal; sym_kRegister;
   sym_kMwpascal; sym_kMessage; sym_kDeprecated; sym_kExperimental; sym_kPlatform;
   sym_kUnimplemented; sym_kCvar; sym_kExport; sym_kFar; sym_kNear; sym_kSafecall;
   sym_kAssembler; sym_kNostackframe; sym_kInterrupt; sym_kNoreturn; sym_kIocheck; sym_kLocal;
   sym_kHardfloat; sym_kSoftfloat; sym_kMs_abi_default; sym_kMs_abi_cdecl; sym_kSaveregisters;
   sym_kSysv_abi_default; sym_kSysv_abi_cdecl; sym_kVectorcall; sym_kVarargs; sym_kWinapi;
   sym_kAlias]; ACTIONS 83 [sym_kAsm]; ACTIONS 85 [sym_kBegin]; ACTIONS 87 [sym_kCase];
   ACTIONS 89 [sym_kClass]; ACTIONS 91 [sym_kConst]; ACTIONS 93 [sym_kConstructor;
   sym_kDestructor]; ACTIONS 95 [sym_kExports]; ACTIONS 97 [sym_kFor];
   ACTIONS 99 [sym_kFunction]; ACTIONS 101 [sym_kGoto]; ACTIONS 103 [sym_kIf];
   ACTIONS 105 [sym_kInherited]; ACTIONS 107 [sym_kLabel]; ACTIONS 65 [sym_kNil];
   ACTIONS 63 [sym_kNot]; ACTIONS 99 [sym_kProcedure]; ACTIONS 109 [sym_kProperty];
   ACTIONS 111 [sym_kRaise]; ACTIONS 113 [sym_kRepeat]; ACTIONS 115 [sym_kResourcestring];
   ACTIONS 117 [sym_kString]; ACTIONS 119 [sym_kThreadvar]; ACTIONS 121 [sym_kTry];
   ACTIONS 123 [sym_kType]; ACTIONS 125 [sym_kUses]; ACTIONS 127 [sym_kVar];
   ACTIONS 129 [sym_kWhile]; ACTIONS 131 [sym_kWith]].

(** State 32. *)
Definition ts_parse_table_32 : parse_row :=
  [STATE 1310 [sym_if]; STATE 31 [sym_ifElse; sym_while; sym_repeat; sym_for; sym_foreach;
   sym_try; sym_case; sym_block; sym_asm; sym_with; sym_raise; sym_statement; sym_goto;
   sym__statement]; STATE 15141 [sym_assignment]; STATE 11829 [sym_varAssignDef];
   STATE 15141 [sym_varDef; sym_constDef]; STATE 8220 [sym__expr; sym_exprConditional];
   STATE 7765 [sym__ref; sym_lambda; sym_inherited; sym_exprDot; sym_exprDeref; sym_exprAs;
   sym_exprTpl; sym_exprSubscript; sym_exprCall]; STATE 8220 [sym_exprBinary; sym_exprUnary];
   STATE 7765 [sym_exprParens; sym_exprBrackets]; STATE 12283 [sym_genericDot; sym_genericTpl;
   sym__genericName]; STATE 7765 [sym__literal; sym_literalString];
   STATE 6994 [sym__literalString; sym_literalChar]; STATE 7765 [sym_literalNumber];
   STATE 7888 [sym__literalInt; sym__literalFloat]; STATE 31 [sym_defProc; sym_declProcFwd;
   sym_declUses]; STATE 12 [sym__ppIf]; STATE 52 [sym__ppElse]; STATE 9668 [sym__ppEndIf];
   STATE 31 [sym_ppBlock; sym_declExports; sym_declTypes; sym_declVars; sym_declConsts;
   sym_declType]; STATE 58 [sym_declProc]; STATE 31 [sym_declVar; sym_declConst; sym_declLabels;
   sym_declField; sym_declProp]; STATE 1009 [sym__declProc]; STATE 1309 [sym__declOperator];
   STATE 2759 [sym_rttiAttributes]; STATE 13110 [aux_sym_genericArg_repeat1];
   STATE 6994 [aux_sym_literalString_repeat1]; STATE 31 [aux_sym_ppBlock_repeat1];
   STATE 12023 [aux_sym_ppBlock_repeat2]; STATE 5428 [aux_sym_declVar_repeat1];
   STATE 2888 [aux_sym_rttiAttributes_repeat2]; ACTIONS 41 [anon_sym_SEMI];
   ACTIONS 43 [anon_sym_COMMA]; ACTIONS 45 [anon_sym_LBRACK]; ACTIONS 47 [anon_sym_LPAREN];
   ACTIONS 49 [aux_sym__literalString_token1]; ACTIONS 51 [anon_sym_POUND];
   ACTIONS 53 [aux_sym__literalInt_token1]; ACTIONS 55 [aux_sym__literalInt_token2;
   aux_sym__literalInt_token3]; ACTIONS 53 [aux_sym__literalFloat_token1];
   ACTIONS 11 [aux_sym_ppUsesBlock_token1]; ACTIONS 57 [aux_sym_ppUsesBlock_token2];
   ACTIONS 59 [aux_sym_ppUsesBlock_token3]; ACTIONS 61 [sym_kAdd; sym_kSub];
   ACTIONS 63 [sym_kAt]; ACTIONS 65 [sym_kTrue; sym_kFalse]; ACTIONS 3 [sym__space];
   ACTIONS 5 [sym_ppDirective]; ACTIONS 3 [sym_comment]; ACTIONS 65 [sym_ppFragmentExpr];
   ACTIONS 49 [sym__literalStringMultiline]; ACTIONS 67 [sym_identifier];
   ACTIONS 69 [sym_kDefault; sym_kNodefault; sym_kDispId]; ACTIONS 71 [sym_kGeneric];
   ACTIONS 73 [sym_kSpecialize]; ACTIONS 75 [sym_kOperator]; ACTIONS 69 [sym_kPublic;
   sym_kStatic; sym_kVirtual; sym_kAbstract; sym_kDynamic; sym_kOverride; sym_kOverload;
   sym_kReintroduce; sym_kStdcall; sym_kCdecl; sym_kCppdecl; sym_kPascal; sym_kRegister;
   sym_kMwpascal; sym_kMessage; sym_kDeprecated; sym_kExperimental; sym_kPlatform;
   sym_kUnimplemented; sym_kCvar; sym_kExport; sym_kFar; sym_kNear; sym_kSafecall;
   sym_kAssembler; sym_kNostackframe; sym_kInterrupt; sym_kNoreturn; sym_kIocheck; sym_kLocal;
   sym_kHardfloat; sym_kSoftfloat; sym_kMs_abi_default; sym_kMs_abi_cdecl; sym_kSaveregisters;
   sym_kSysv_abi_default; sym_kSysv_abi_cdecl; sym_kVectorcall; sym_kVarargs; sym_kWinapi;
   sym_kAlias]; ACTIONS 83 [sym_kAsm]; ACTIONS 85 [sym_kBegin]; ACTIONS 87 [sym_kCase];
   ACTIONS 89 [sym_kClass]; ACTIONS 91 [sym_kConst]; ACTIONS 93 [sym_kConstructor;
   sym_kDestructor]; ACTIONS 95 [sym_kExports]; ACTIONS 97 [sym_kFor];
   ACTIONS 99 [sym_kFunction]; ACTIONS 101 [sym_kGoto]; ACTIONS 103 [sym_kIf];
   ACTIONS 105 [sym_kInherited]; ACTIONS 107 [sym_kLabel]; ACTIONS 65 [sym_kNil];
   ACTIONS 63 [sym_kNot]; ACTIONS 99 [sym_kProcedure]; ACTIONS 109 [sym_kProperty];
   ACTIONS 111 [sym_kRaise]; ACTIONS 113 [sym_kRepeat]; ACTIONS 115 [sym_kResourcestring];
   ACTIONS 117 [sym_kString]; ACTIONS 119 [sym_kThreadvar]; ACTIONS 121 [sym_kTry];
   ACTIONS 123 [sym_kType]; ACTIONS 125 [sym_kUses]; ACTIONS 127 [sym_kVar];
   ACTIONS 129 [sym_kWhile]; ACTIONS 131 [sym_kWith]].

(** State 33. *)
Definition ts_parse_table_33 : parse_row :=
  [STATE 1310 [sym_if]; STATE 51 [sym_ifElse; sym_while; sym_repeat; sym_for; sym_foreach;
   sym_try; sym_case; sym_block; sym_asm; sym_with; sym_raise; sym_statement; sym_goto;
   sym__statement]; STATE 15141 [sym_assignment]; STATE 11829 [sym_varAssignDef];
   STATE 15141 [sym_varDef; sym_constDef]; STATE 8220 [sym__expr; sym_exprConditional];
   STATE 7765 [sym__ref; sym_lambda; sym_inherited; sym_exprDot; sym_exprDeref; sym_exprAs;
   sym_exprTpl; sym_exprSubscript; sym_exprCall]; STATE 8220 [sym_exprBinary; sym_exprUnary];
   STATE 7765 [sym_exprParens; sym_exprBrackets]; STATE 12283 [sym_genericDot; sym_genericTpl;
   sym__genericName]; STATE 7765 [sym__literal; sym_literalString];
   STATE 6994 [sym__literalString; sym_literalChar]; STATE 7765 [sym_literalNumber];
   STATE 7888 [sym__literalInt; sym__literalFloat]; STATE 51 [sym_defProc; sym_declProcFwd;
   sym_declUses]; STATE 12 [sym__ppIf]; STATE 52 [sym__ppElse]; STATE 10378 [sym__ppEndIf];
   STATE 51 [sym_ppBlock; sym_declExports; sym_declTypes; sym_declVars; sym_declConsts;
   sym_declType]; STATE 58 [sym_declProc]; STATE 51 [sym_declVar; sym_declConst; sym_declLabels;
   sym_declField; sym_declProp]; STATE 1009 [sym__declProc]; STATE 1309 [sym__declOperator];
   STATE 2759 [sym_rttiAttributes]; STATE 13110 [aux_sym_genericArg_repeat1];
   STATE 6994 [aux_sym_literalString_repeat1]; STATE 51 [aux_sym_ppBlock_repeat1];
   STATE 11875 [aux_sym_ppBlock_repeat2]; STATE 5428 [aux_sym_declVar_repeat1];
   STATE 2888 [aux_sym_rttiAttributes_repeat2]; ACTIONS 41 [anon_sym_SEMI];
   ACTIONS 149 [anon_sym_COMMA]; ACTIONS 45 [anon_sym_LBRACK]; ACTIONS 47 [anon_sym_LPAREN];
   ACTIONS 49 [aux_sym__literalString_token1]; ACTIONS 51 [anon_sym_POUND];
   ACTIONS 53 [aux_sym__literalInt_token1]; ACTIONS 55 [aux_sym__literalInt_token2;
   aux_sym__literalInt_token3]; ACTIONS 53 [aux_sym__literalFloat_token1];
   ACTIONS 11 [aux_sym_ppUsesBlock_token1]; ACTIONS 57 [aux_sym_ppUsesBlock_token2];
   ACTIONS 179 [aux_sym_ppUsesBlock_token3]; ACTIONS 61 [sym_kAdd; sym_kSub];
   ACTIONS 63 [sym_kAt]; ACTIONS 65 [sym_kTrue; sym_kFalse]; ACTIONS 3 [sym__space];
   ACTIONS 5 [sym_ppDirective]; ACTIONS 3 [sym_comment]; ACTIONS 65 [sym_ppFragmentExpr];
   ACTIONS 49 [sym__literalStringMultiline]; ACTIONS 67 [sym_identifier];
   ACTIONS 69 [sym_kDefault; sym_kNodefault; sym_kDispId]; ACTIONS 71 [sym_kGeneric];
   ACTIONS 73 [sym_kSpecialize]; ACTIONS 75 [sym_kOperator]; ACTIONS 69 [sym_kPublic;
   sym_kStatic; sym_kVirtual; sym_kAbstract; sym_kDynamic; sym_kOverride; sym_kOverload;
   sym_kReintroduce; sym_kStdcall; sym_kCdecl; sym_kCppdecl; sym_kPascal; sym_kRegister;
   sym_kMwpascal; sym_kMessage; sym_kDeprecated; sym_kExperimental; sym_kPlatform;
   sym_kUnimplemented; sym_kCvar; sym_kExport; sym_kFar; sym_kNear; sym_kSafecall;
   sym_kAssembler; sym_kNostackframe; sym_kInterrupt; sym_kNoreturn; sym_kIocheck; sym_kLocal;
   sym_kHardfloat; sym_kSoftfloat; sym_kMs_abi_default; sym_kMs_abi_cdecl; sym_kSaveregisters;
   sym_kSysv_abi_default; sym_kSysv_abi_cdecl; sym_kVectorcall; sym_kVarargs; sym_kWinapi;
   sym_kAlias]; ACTIONS 83 [sym_kAsm]; ACTIONS 85 [sym_kBegin]; ACTIONS 87 [sym_kCase];
   ACTIONS 89 [sym_kClass]; ACTIONS 91 [sym_kConst]; ACTIONS 93 [sym_kConstructor;
   sym_kDestructor]; ACTIONS 95 [sym_kExports]; ACTIONS 97 [sym_kFor];
   ACTIONS 99 [sym_kFunction]; ACTIONS 101 [sym_kGoto]; ACTIONS 103 [sym_kIf];
   ACTIONS 105 [sym_kInherited]; ACTIONS 107 [sym_kLabel]; ACTIONS 65 [sym_kNil];
   ACTIONS 63 [sym_kNot]; ACTIONS 99 [sym_kProcedure]; ACTIONS 109 [sym_kProperty];
   ACTIONS 111 [sym_kRaise]; ACTIONS 113 [sym_kRepeat]; ACTIONS 115 [sym_kResourcestring];
   ACTIONS 117 [sym_kString]; ACTIONS 119 [sym_kThreadvar]; ACTIONS 121 [sym_kTry];
   ACTIONS 123 [sym_kType]; ACTIONS 125 [sym_kUses]; ACTIONS 127 [sym_kVar];
   ACTIONS 129 [sym_kWhile]; ACTIONS 131 [sym_kWith]].

(** State 34. *)
Definition ts_parse_table_34 : parse_row :=
  [STATE 1310 [sym_if]; STATE 41 [sym_ifElse; sym_while; sym_repeat; sym_for; sym_foreach;
   sym_try; sym_case; sym_block; sym_asm; sym_with; sym_raise; sym_statement; sym_goto;
   sym__statement]; STATE 15141 [sym_assignment]; STATE 11829 [sym_varAssignDef];
   STATE 15141 [sym_varDef; sym_constDef]; STATE 8220 [sym__expr; sym_exprConditional];
   STATE 7765 [sym__ref; sym_lambda; sym_inherited; sym_exprDot; sym_exprDeref; sym_exprAs;
   sym_exprTpl; sym_exprSubscript; sym_exprCall]; STATE 8220 [sym_exprBinary; sym_exprUnary];
   STATE 7765 [sym_exprParens; sym_exprBrackets]; STATE 12283 [sym_genericDot; sym_genericTpl;
   sym__genericName]; STATE 7765 [sym__literal; sym_literalString];
   STATE 6994 [sym__literalString; sym_literalChar]; STATE 7765 [sym_literalNumber];
   STATE 7888 [sym__literalInt; sym__literalFloat]; STATE 41 [sym_defProc; sym_declProcFwd;
   sym_declUses]; STATE 12 [sym__ppIf]; STATE 52 [sym__ppElse]; STATE 2563 [sym__ppEndIf];
   STATE 41 [sym_ppBlock; sym_declExports; sym_declTypes; sym_declVars; sym_declConsts;
   sym_declType]; STATE 58 [sym_declProc]; STATE 41 [sym_declVar; sym_declConst; sym_declLabels;
   sym_declField; sym_declProp]; STATE 1009 [sym__declProc]; STATE 1309 [sym__declOperator];
   STATE 2759 [sym_rttiAttributes]; STATE 13110 [aux_sym_genericArg_repeat1];
   STATE 6994 [aux_sym_literalString_repeat1]; STATE 41 [aux_sym_ppBlock_repeat1];
   STATE 11686 [aux_sym_ppBlock_repeat2]; STATE 5428 [aux_sym_declVar_repeat1];
   STATE 2888 [aux_sym_rttiAttributes_repeat2]; ACTIONS 41 [anon_sym_SEMI];
   ACTIONS 191 [anon_sym_COMMA]; ACTIONS 45 [anon_sym_LBRACK]; ACTIONS 47 [anon_sym_LPAREN];
   ACTIONS 49 [aux_sym__literalString_token1]; ACTIONS 51 [anon_sym_POUND];
   ACTIONS 53 [aux_sym__literalInt_token1]; ACTIONS 55 [aux_sym__literalInt_token2;
   aux_sym__literalInt_token3]; ACTIONS 53 [aux_sym__literalFloat_token1];
   ACTIONS 11 [aux_sym_ppUsesBlock_token1]; ACTIONS 57 [aux_sym_ppUsesBlock_token2];
   ACTIONS 193 [aux_sym_ppUsesBlock_token3]; ACTIONS 61 [sym_kAdd; sym_kSub];
   ACTIONS 63 [sym_kAt]; ACTIONS 65 [sym_kTrue; sym_kFalse]; ACTIONS 3 [sym__space];
   ACTIONS 5 [sym_ppDirective]; ACTIONS 3 [sym_comment]; ACTIONS 65 [sym_ppFragmentExpr];
   ACTIONS 49 [sym__literalStringMultiline]; ACTIONS 67 [sym_identifier];
   ACTIONS 69 [sym_kDefault; sym_kNodefault; sym_kDispId]; ACTIONS 71 [sym_kGeneric];
   ACTIONS 73 [sym_kSpecialize]; ACTIONS 75 [sym_kOperator]; ACTIONS 69 [sym_kPublic;
   sym_kStatic; sym_kVirtual; sym_kAbstract; sym_kDynamic; sym_kOverride; sym_kOverload;
   sym_kReintroduce; sym_kStdcall; sym_kCdecl; sym_kCppdecl; sym_kPascal; sym_kRegister;
   sym_kMwpascal; sym_kMessage; sym_kDeprecated; sym_kExperimental; sym_kPlatform;
   sym_kUnimplemented; sym_kCvar; sym_kExport; sym_kFar; sym_kNear; sym_kSafecall;
   sym_kAssembler; sym_kNostackframe; sym_kInterrupt; sym_kNoreturn; sym_kIocheck; sym_kLocal;
   sym_kHardfloat; sym_kSoftfloat; sym_kMs_abi_default; sym_kMs_abi_cdecl; sym_kSaveregisters;
   sym_kSysv_abi_default; sym_kSysv_abi_cdecl; sym_kVectorcall; sym_kVarargs; sym_kWinapi;
   sym_kAlias]; ACTIONS 83 [sym_kAsm]; ACTIONS 85 [sym_kBegin]; ACTIONS 87 [sym_kCase];
   ACTIONS 89 [sym_kClass]; ACTIONS 91 [sym_kConst]; ACTIONS 93 [sym_kConstructor;
   sym_kDestructor]; ACTIONS 95 [sym_kExports]; ACTIONS 97 [sym_kFor];
   ACTIONS 99 [sym_kFunction]; ACTIONS 101 [sym_kGoto]; ACTIONS 103 [sym_kIf];
   ACTIONS 105 [sym_kInherited]; ACTIONS 107 [sym_kLabel]; ACTIONS 65 [sym_kNil];
   ACTIONS 63 [sym_kNot]; ACTIONS 99 [sym_kProcedure]; ACTIONS 109 [sym_kProperty];
   ACTIONS 111 [sym_kRaise]; ACTIONS 113 [sym_kRepeat]; ACTIONS 115 [sym_kResourcestring];
   ACTIONS 117 [sym_kString]; ACTIONS 119 [sym_kThreadvar]; ACTIONS 121 [sym_kTry];
   ACTIONS 123 [sym_kType]; ACTIONS 125 [sym_kUses]; ACTIONS 127 [sym_kVar];
   ACTIONS 129 [sym_kWhile]; ACTIONS 131 [sym_kWith]].

(** State 35. *)
Definition ts_parse_table_35 : parse_row :=
  [STATE 1310 [sym_if]; STATE 51 [sym_ifElse; sym_while; sym_repeat; sym_for; sym_foreach;
   sym_try; sym_case; sym_block; sym_asm; sym_with; sym_raise; sym_statement; sym_goto;
   sym__statement]; STATE 15141 [sym_assignment]; STATE 11829 [sym_varAssignDef];
   STATE 15141 [sym_varDef; sym_constDef]; STATE 8220 [sym__expr; sym_exprConditional];
   STATE 7765 [sym__ref; sym_lambda; sym_inherited; sym_exprDot; sym_exprDeref; sym_exprAs;
   sym_exprTpl; sym_exprSubscript; sym_exprCall]; STATE 8220 [sym_exprBinary; sym_exprUnary];
   STATE 7765 [sym_exprParens; sym_exprBrackets]; STATE 12283 [sym_genericDot; sym_genericTpl;
   sym__genericName]; STATE 7765 [sym__literal; sym_literalString];
   STATE 6994 [sym__literalString; sym_literalChar]; STATE 7765 [sym_literalNumber];
   STATE 7888 [sym__literalInt; sym__literalFloat]; STATE 51 [sym_defProc; sym_declProcFwd;
   sym_declUses]; STATE 12 [sym__ppIf]; STATE 52 [sym__ppElse]; STATE 2714 [sym__ppEndIf];
   STATE 51 [sym_ppBlock; sym_declExports; sym_declTypes; sym_declVars; sym_declConsts;
   sym_declType]; STATE 58 [sym_declProc]; STATE 51 [sym_declVar; sym_declConst; sym_declLabels;
   sym_declField; sym_declProp]; STATE 1009 [sym__declProc]; STATE 1309 [sym__declOperator];
   STATE 2759 [sym_rttiAttributes]; STATE 13110 [aux_sym_genericArg_repeat1];
   STATE 6994 [aux_sym_literalString_repeat1]; STATE 51 [aux_sym_ppBlock_repeat1];
   STATE 11732 [aux_sym_ppBlock_repeat2]; STATE 5428 [aux_sym_declVar_repeat1];
   STATE 2888 [aux_sym_rttiAttributes_repeat2]; ACTIONS 41 [anon_sym_SEMI];
   ACTIONS 149 [anon_sym_COMMA]; ACTIONS 45 [anon_sym_LBRACK]; ACTIONS 47 [anon_sym_LPAREN];
   ACTIONS 49 [aux_sym__literalString_token1]; ACTIONS 51 [anon_sym_POUND];
   ACTIONS 53 [aux_sym__literalInt_token1]; ACTIONS 55 [aux_sym__literalInt_token2;
   aux_sym__literalInt_token3]; ACTIONS 53 [aux_sym__literalFloat_token1];
   ACTIONS 11 [aux_sym_ppUsesBlock_token1]; ACTIONS 57 [aux_sym_ppUsesBlock_token2];
   ACTIONS 185 [aux_sym_ppUsesBlock_token3]; ACTIONS 61 [sym_kAdd; sym_kSub];
   ACTIONS 63 [sym_kAt]; ACTIONS 65 [sym_kTrue; sym_kFalse]; ACTIONS 3 [sym__space];
   ACTIONS 5 [sym_ppDirective]; ACTIONS 3 [sym_comment]; ACTIONS 65 [sym_ppFragmentExpr];
   ACTIONS 49 [sym__literalStringMultiline]; ACTIONS 67 [sym_identifier];
   ACTIONS 69 [sym_kDefault; sym_kNodefault; sym_kDispId]; ACTIONS 71 [sym_kGeneric];
   ACTIONS 73 [sym_kSpecialize]; ACTIONS 75 [sym_kOperator]; ACTIONS 69 [sym_kPublic;
   sym_kStatic; sym_kVirtual; sym_kAbstract; sym_kDynamic; sym_kOverride; sym_kOverload;
   sym_kReintroduce; sym_kStdcall; sym_kCdecl; sym_kCppdecl; sym_kPascal; sym_kRegister;
   sym_kMwpascal; sym_kMessage; sym_kDeprecated; sym_kExperimental; sym_kPlatform;
   sym_kUnimplemented; sym_kCvar; sym_kExport; sym_kFar; sym_kNear; sym_kSafecall;
   sym_kAssembler; sym_kNostackframe; sym_kInterrupt; sym_kNoreturn; sym_kIocheck; sym_kLocal;
   sym_kHardfloat; sym_kSoftfloat; sym_kMs_abi_default; sym_kMs_abi_cdecl; sym_kSaveregisters;
   sym_kSysv_abi_default; sym_kSysv_abi_cdecl; sym_kVectorcall; sym_kVarargs; sym_kWinapi;
   sym_kAlias]; ACTIONS 83 [sym_kAsm]; ACTIONS 85 [sym_kBegin]; ACTIONS 87 [sym_kCase];
   ACTIONS 89 [sym_kClass]; ACTIONS 91 [sym_kConst]; ACTIONS 93 [sym_kConstructor;
   sym_kDestructor]; ACTIONS 95 [sym_kExports]; ACTIONS 97 [sym_kFor];
   ACTIONS 99 [sym_kFunction]; ACTIONS 101 [sym_kGoto]; ACTIONS 103 [sym_kIf];
   ACTIONS 105 [sym_kInherited]; ACTIONS 107 [sym_kLabel]; ACTIONS 65 [sym_kNil];
   ACTIONS 63 [sym_kNot]; ACTIONS 99 [sym_kProcedure]; ACTIONS 109 [sym_kProperty];
   ACTIONS 111 [sym_kRaise]; ACTIONS 113 [sym_kRepeat]; ACTIONS 115 [sym_kResourcestring];
   ACTIONS 117 [sym_kString]; ACTIONS 119 [sym_kThreadvar]; ACTIONS 121 [sym_kTry];
   ACTIONS 123 [sym_kType]; ACTIONS 125 [sym_kUses]; ACTIONS 127 [sym_kVar];
   ACTIONS 129 [sym_kWhile]; ACTIONS 131 [sym_kWith]].

(** State 36. *)
Definition ts_parse_table_36 : parse_row :=
  [STATE 1310 [sym_if]; STATE 45 [sym_ifElse; sym_while; sym_repeat; sym_for; sym_foreach;
   sym_try; sym_case; sym_block; sym_asm; sym_with; sym_raise; sym_statement; sym_goto;
   sym__statement]; STATE 15141 [sym_assignment]; STATE 11829 [sym_varAssignDef];
   STATE 15141 [sym_varDef; sym_constDef]; STATE 8220 [sym__expr; sym_exprConditional];
   STATE 7765 [sym__ref; sym_lambda; sym_inherited; sym_exprDot; sym_exprDeref; sym_exprAs;
   sym_exprTpl; sym_exprSubscript; sym_exprCall]; STATE 8220 [sym_exprBinary; sym_exprUnary];
   STATE 7765 [sym_exprParens; sym_exprBrackets]; STATE 12283 [sym_genericDot; sym_genericTpl;
   sym__genericName]; STATE 7765 [sym__literal; sym_literalString];
   STATE 6994 [sym__literalString; sym_literalChar]; STATE 7765 [sym_literalNumber];
   STATE 7888 [sym__literalInt; sym__literalFloat]; STATE 45 [sym_defProc; sym_declProcFwd;
   sym_declUses]; STATE 12 [sym__ppIf]; STATE 52 [sym__ppElse]; STATE 10244 [sym__ppEndIf];
   STATE 45 [sym_ppBlock; sym_declExports; sym_declTypes; sym_declVars; sym_declConsts;
   sym_declType]; STATE 58 [sym_declProc]; STATE 45 [sym_declVar; sym_declConst; sym_declLabels;
   sym_declField; sym_declProp]; STATE 1009 [sym__declProc]; STATE 1309 [sym__declOperator];
   STATE 2759 [sym_rttiAttributes]; STATE 13110 [aux_sym_genericArg_repeat1];
   STATE 6994 [aux_sym_literalString_repeat1]; STATE 45 [aux_sym_ppBlock_repeat1];
   STATE 11772 [aux_sym_ppBlock_repeat2]; STATE 5428 [aux_sym_declVar_repeat1];
   STATE 2888 [aux_sym_rttiAttributes_repeat2]; ACTIONS 41 [anon_sym_SEMI];
   ACTIONS 195 [anon_sym_COMMA]; ACTIONS 45 [anon_sym_LBRACK]; ACTIONS 47 [anon_sym_LPAREN];
   ACTIONS 49 [aux_sym__literalString_token1]; ACTIONS 51 [anon_sym_POUND];
   ACTIONS 53 [aux_sym__literalInt_token1]; ACTIONS 55 [aux_sym__literalInt_token2;
   aux_sym__literalInt_token3]; ACTIONS 53 [aux_sym__literalFloat_token1];
   ACTIONS 11 [aux_sym_ppUsesBlock_token1]; ACTIONS 57 [aux_sym_ppUsesBlock_token2];
   ACTIONS 197 [aux_sym_ppUsesBlock_token3]; ACTIONS 61 [sym_kAdd; sym_kSub];
   ACTIONS 63 [sym_kAt]; ACTIONS 65 [sym_kTrue; sym_kFalse]; ACTIONS 3 [sym__space];
   ACTIONS 5 [sym_ppDirective]; ACTIONS 3 [sym_comment]; ACTIONS 65 [sym_ppFragmentExpr];
   ACTIONS 49 [sym__literalStringMultiline]; ACTIONS 67 [sym_identifier];
   ACTIONS 69 [sym_kDefault; sym_kNodefault; sym_kDispId]; ACTIONS 71 [sym_kGeneric];
   ACTIONS 73 [sym_kSpecialize]; ACTIONS 75 [sym_kOperator]; ACTIONS 69 [sym_kPublic;
   sym_kStatic; sym_kVirtual; sym_kAbstract; sym_kDynamic; sym_kOverride; sym_kOverload;
   sym_kReintroduce; sym_kStdcall; sym_kCdecl; sym_kCppdecl; sym_kPascal; sym_kRegister;
   sym_kMwpascal; sym_kMessage; sym_kDeprecated; sym_kExperimental; sym_kPlatform;
   sym_kUnimplemented; sym_kCvar; sym_kExport; sym_kFar; sym_kNear; sym_kSafecall;
   sym_kAssembler; sym_kNostackframe; sym_kInterrupt; sym_kNoreturn; sym_kIocheck; sym_kLocal;
   sym_kHardfloat; sym_kSoftfloat; sym_kMs_abi_default; sym_kMs_abi_cdecl; sym_kSaveregisters;
   sym_kSysv_abi_default; sym_kSysv_abi_cdecl; sym_kVectorcall; sym_kVarargs; sym_kWinapi;
   sym_kAlias]; ACTIONS 83 [sym_kAsm]; ACTIONS 85 [sym_kBegin]; ACTIONS 87 [sym_kCase];
   ACTIONS 89 [sym_kClass]; ACTIONS 91 [sym_kConst]; ACTIONS 93 [sym_kConstructor;
   sym_kDestructor]; ACTIONS 95 [sym_kExports]; ACTIONS 97 [sym_kFor];
   ACTIONS 99 [sym_kFunction]; ACTIONS 101 [sym_kGoto]; ACTIONS 103 [sym_kIf];
   ACTIONS 105 [sym_kInherited]; ACTIONS 107 [sym_kLabel]; ACTIONS 65 [sym_kNil];
   ACTIONS 63 [sym_kNot]; ACTIONS 99 [sym_kProcedure]; ACTIONS 109 [sym_kProperty];
   ACTIONS 111 [sym_kRaise]; ACTIONS 113 [sym_kRepeat]; ACTIONS 115 [sym_kResourcestring];
   ACTIONS 117 [sym_kString]; ACTIONS 119 [sym_kThreadvar]; ACTIONS 121 [sym_kTry];
   ACTIONS 123 [sym_kType]; ACTIONS 125 [sym_kUses]; ACTIONS 127 [sym_kVar];
   ACTIONS 129 [sym_kWhile]; ACTIONS 131 [sym_kWith]].

(** State 37. *)
Definition ts_parse_table_37 : parse_row :=
  [STATE 1310 [sym_if]; STATE 51 [sym_ifElse; sym_while; sym_repeat; sym_for; sym_foreach;
   sym_try; sym_case; sym_block; sym_asm; sym_with; sym_raise; sym_statement; sym_goto;
   sym__statement]; STATE 15141 [sym_assignment]; STATE 11829 [sym_varAssignDef];
   STATE 15141 [sym_varDef; sym_constDef]; STATE 8220 [sym__expr; sym_exprConditional];
   STATE 7765 [sym__ref; sym_lambda; sym_inherited; sym_exprDot; sym_exprDeref; sym_exprAs;
   sym_exprTpl; sym_exprSubscript; sym_exprCall]; STATE 8220 [sym_exprBinary; sym_exprUnary];
   STATE 7765 [sym_exprParens; sym_exprBrackets]; STATE 12283 [sym_genericDot; sym_genericTpl;
   sym__genericName]; STATE 7765 [sym__literal; sym_literalString];
   STATE 6994 [sym__literalString; sym_literalChar]; STATE 7765 [sym_literalNumber];
   STATE 7888 [sym__literalInt; sym__literalFloat]; STATE 51 [sym_defProc; sym_declProcFwd;
   sym_declUses]; STATE 12 [sym__ppIf]; STATE 52 [sym__ppElse]; STATE 10317 [sym__ppEndIf];
   STATE 51 [sym_ppBlock; sym_declExports; sym_declTypes; sym_declVars; sym_declConsts;
   sym_declType]; STATE 58 [sym_declProc]; STATE 51 [sym_declVar; sym_declConst; sym_declLabels;
   sym_declField; sym_declProp]; STATE 1009 [sym__declProc]; STATE 1309 [sym__declOperator];
   STATE 2759 [sym_rttiAttributes]; STATE 13110 [aux_sym_genericArg_repeat1];
   STATE 6994 [aux_sym_literalString_repeat1]; STATE 51 [aux_sym_ppBlock_repeat1];
   STATE 11873 [aux_sym_ppBlock_repeat2]; STATE 5428 [aux_sym_declVar_repeat1];
   STATE 2888 [aux_sym_rttiAttributes_repeat2]; ACTIONS 41 [anon_sym_SEMI];
   ACTIONS 149 [anon_sym_COMMA]; ACTIONS 45 [anon_sym_LBRACK]; ACTIONS 47 [anon_sym_LPAREN];
   ACTIONS 49 [aux_sym__literalString_token1]; ACTIONS 51 [anon_sym_POUND];
   ACTIONS 53 [aux_sym__literalInt_token1]; ACTIONS 55 [aux_sym__literalInt_token2;
   aux_sym__literalInt_token3]; ACTIONS 53 [aux_sym__literalFloat_token1];
   ACTIONS 11 [aux_sym_ppUsesBlock_token1]; ACTIONS 57 [aux_sym_ppUsesBlock_token2];
   ACTIONS 167 [aux_sym_ppUsesBlock_token3]; ACTIONS 61 [sym_kAdd; sym_kSub];
   ACTIONS 63 [sym_kAt]; ACTIONS 65 [sym_kTrue; sym_kFalse]; ACTIONS 3 [sym__space];
   ACTIONS 5 [sym_ppDirective]; ACTIONS 3 [sym_comment]; ACTIONS 65 [sym_ppFragmentExpr];
   ACTIONS 49 [sym__literalStringMultiline]; ACTIONS 67 [sym_identifier];
   ACTIONS 69 [sym_kDefault; sym_kNodefault; sym_kDispId]; ACTIONS 71 [sym_kGeneric];
   ACTIONS 73 [sym_kSpecialize]; ACTIONS 75 [sym_kOperator]; ACTIONS 69 [sym_kPublic;
   sym_kStatic; sym_kVirtual; sym_kAbstract; sym_kDynamic; sym_kOverride; sym_kOverload;
   sym_kReintroduce; sym_kStdcall; sym_kCdecl; sym_kCppdecl; sym_kPascal; sym_kRegister;
   sym_kMwpascal; sym_kMessage; sym_kDeprecated; sym_kExperimental; sym_kPlatform;
   sym_kUnimplemented; sym_kCvar; sym_kExport; sym_kFar; sym_kNear; sym_kSafecall;
   sym_kAssembler; sym_kNostackframe; sym_kInterrupt; sym_kNoreturn; sym_kIocheck; sym_kLocal;
   sym_kHardfloat; sym_kSoftfloat; sym_kMs_abi_default; sym_kMs_abi_cdecl; sym_kSaveregisters;
   sym_kSysv_abi_default; sym_kSysv_abi_cdecl; sym_kVectorcall; sym_kVarargs; sym_kWinapi;
   sym_kAlias]; ACTIONS 83 [sym_kAsm]; ACTIONS 85 [sym_kBegin]; ACTIONS 87 [sym_kCase];
   ACTIONS 89 [sym_kClass]; ACTIONS 91 [sym_kConst]; ACTIONS 93 [sym_kConstructor;
   sym_kDestructor]; ACTIONS 95 [sym_kExports]; ACTIONS 97 [sym_kFor];
   ACTIONS 99 [sym_kFunction]; ACTIONS 101 [sym_kGoto]; ACTIONS 103 [sym_kIf];
   ACTIONS 105 [sym_kInherited]; ACTIONS 107 [sym_kLabel]; ACTIONS 65 [sym_kNil];
   ACTIONS 63 [sym_kNot]; ACTIONS 99 [sym_kProcedure]; ACTIONS 109 [sym_kProperty];
   ACTIONS 111 [sym_kRaise]; ACTIONS 113 [sym_kRepeat]; ACTIONS 115 [sym_kResourcestring];
   ACTIONS 117 [sym_kString]; ACTIONS 119 [sym_kThreadvar]; ACTIONS 121 [sym_kTry];
   ACTIONS 123 [sym_kType]; ACTIONS 125 [sym_kUses]; ACTIONS 127 [sym_kVar];
   ACTIONS 129 [sym_kWhile]; ACTIONS 131 [sym_kWith]].

(** State 38. *)
Definition ts_parse_table_38 : parse_row :=
  [STATE 1310 [sym_if]; STATE 46 [sym_ifElse; sym_while; sym_repeat; sym_for; sym_foreach;
   sym_try; sym_case; sym_block; sym_asm; sym_with; sym_raise; sym_statement; sym_goto;
   sym__statement]; STATE 15141 [sym_assignment]; STATE 11829 [sym_varAssignDef];
   STATE 15141 [sym_varDef; sym_constDef]; STATE 8220 [sym__expr; sym_exprConditional];
   STATE 7765 [sym__ref; sym_lambda; sym_inherited; sym_exprDot; sym_exprDeref; sym_exprAs;
   sym_exprTpl; sym_exprSubscript; sym_exprCall]; STATE 8220 [sym_exprBinary; sym_exprUnary];
   STATE 7765 [sym_exprParens; sym_exprBrackets]; STATE 12283 [sym_genericDot; sym_genericTpl;
   sym__genericName]; STATE 7765 [sym__literal; sym_literalString];
   STATE 6994 [sym__literalString; sym_literalChar]; STATE 7765 [sym_literalNumber];
   STATE 7888 [sym__literalInt; sym__literalFloat]; STATE 46 [sym_defProc; sym_declProcFwd;
   sym_declUses]; STATE 12 [sym__ppIf]; STATE 52 [sym__ppElse]; STATE 2586 [sym__ppEndIf];
   STATE 46 [sym_ppBlock; sym_declExports; sym_declTypes; sym_declVars; sym_declConsts;
   sym_declType]; STATE 58 [sym_declProc]; STATE 46 [sym_declVar; sym_declConst; sym_declLabels;
   sym_declField; sym_declProp]; STATE 1009 [sym__declProc]; STATE 1309 [sym__declOperator];
   STATE 2759 [sym_rttiAttributes]; STATE 13110 [aux_sym_genericArg_repeat1];
   STATE 6994 [aux_sym_literalString_repeat1]; STATE 46 [aux_sym_ppBlock_repeat1];
   STATE 11797 [aux_sym_ppBlock_repeat2]; STATE 5428 [aux_sym_declVar_repeat1];
   STATE 2888 [aux_sym_rttiAttributes_repeat2]; ACTIONS 41 [anon_sym_SEMI];
   ACTIONS 199 [anon_sym_COMMA]; ACTIONS 45 [anon_sym_LBRACK]; ACTIONS 47 [anon_sym_LPAREN];
   ACTIONS 49 [aux_sym__literalString_token1]; ACTIONS 51 [anon_sym_POUND];
   ACTIONS 53 [aux_sym__literalInt_token1]; ACTIONS 55 [aux_sym__literalInt_token2;
   aux_sym__literalInt_token3]; ACTIONS 53 [aux_sym__literalFloat_token1];
   ACTIONS 11 [aux_sym_ppUsesBlock_token1]; ACTIONS 57 [aux_sym_ppUsesBlock_token2];
   ACTIONS 201 [aux_sym_ppUsesBlock_token3]; ACTIONS 61 [sym_kAdd; sym_kSub];
   ACTIONS 63 [sym_kAt]; ACTIONS 65 [sym_kTrue; sym_kFalse]; ACTIONS 3 [sym__space];
   ACTIONS 5 [sym_ppDirective]; ACTIONS 3 [sym_comment]; ACTIONS 65 [sym_ppFragmentExpr];
   ACTIONS 49 [sym__literalStringMultiline]; ACTIONS 67 [sym_identifier];
   ACTIONS 69 [sym_kDefault; sym_kNodefault; sym_kDispId]; ACTIONS 71 [sym_kGeneric];
   ACTIONS 73 [sym_kSpecialize]; ACTIONS 75 [sym_kOperator]; ACTIONS 69 [sym_kPublic;
   sym_kStatic; sym_kVirtual; sym_kAbstract; sym_kDynamic; sym_kOverride; sym_kOverload;
   sym_kReintroduce; sym_kStdcall; sym_kCdecl; sym_kCppdecl; sym_kPascal; sym_kRegister;
   sym_kMwpascal; sym_kMessage; sym_kDeprecated; sym_kExperimental; sym_kPlatform;
   sym_kUnimplemented; sym_kCvar; sym_kExport; sym_kFar; sym_kNear; sym_kSafecall;
   sym_kAssembler; sym_kNostackframe; sym_kInterrupt; sym_kNoreturn; sym_kIocheck; sym_kLocal;
   sym_kHardfloat; sym_kSoftfloat; sym_kMs_abi_default; sym_kMs_abi_cdecl; sym_kSaveregisters;
   sym_kSysv_abi_default; sym_kSysv_abi_cdecl; sym_kVectorcall; sym_kVarargs; sym_kWinapi;
   sym_kAlias]; ACTIONS 83 [sym_kAsm]; ACTIONS 85 [sym_kBegin]; ACTIONS 87 [sym_kCase];
   ACTIONS 89 [sym_kClass]; ACTIONS 91 [sym_kConst]; ACTIONS 93 [sym_kConstructor;
   sym_kDestructor]; ACTIONS 95 [sym_kExports]; ACTIONS 97 [sym_kFor];
   ACTIONS 99 [sym_kFunction]; ACTIONS 101 [sym_kGoto]; ACTIONS 103 [sym_kIf];
   ACTIONS 105 [sym_kInherited]; ACTIONS 107 [sym_kLabel]; ACTIONS 65 [sym_kNil];
   ACTIONS 63 [sym_kNot]; ACTIONS 99 [sym_kProcedure]; ACTIONS 109 [sym_kProperty];
   ACTIONS 111 [sym_kRaise]; ACTIONS 113 [sym_kRepeat]; ACTIONS 115 [sym_kResourcestring];
   ACTIONS 117 [sym_kString]; ACTIONS 119 [sym_kThreadvar]; ACTIONS 121 [sym_kTry];
   ACTIONS 123 [sym_kType]; ACTIONS 125 [sym_kUses]; ACTIONS 127 [sym_kVar];
   ACTIONS 129 [sym_kWhile]; ACTIONS 131 [sym_kWith]].

(** State 39. *)
Definition ts_parse_table_39 : parse_row :=
  [STATE 1310 [sym_if]; STATE 51 [sym_ifElse; sym_while; sym_repeat; sym_for; sym_foreach;
   sym_try; sym_case; sym_block; sym_asm; sym_with; sym_raise; sym_statement; sym_goto;
   sym__statement]; STATE 15141 [sym_assignment]; STATE 11829 [sym_varAssignDef];
   STATE 15141 [sym_varDef; sym_constDef]; STATE 8220 [sym__expr; sym_exprConditional];
   STATE 7765 [sym__ref; sym_lambda; sym_inherited; sym_exprDot; sym_exprDeref; sym_exprAs;
   sym_exprTpl; sym_exprSubscript; sym_exprCall]; STATE 8220 [sym_exprBinary; sym_exprUnary];
   STATE 7765 [sym_exprParens; sym_exprBrackets]; STATE 12283 [sym_genericDot; sym_genericTpl;
   sym__genericName]; STATE 7765 [sym__literal; sym_literalString];
   STATE 6994 [sym__literalString; sym_literalChar]; STATE 7765 [sym_literalNumber];
   STATE 7888 [sym__literalInt; sym__literalFloat]; STATE 51 [sym_defProc; sym_declProcFwd;
   sym_declUses]; STATE 12 [sym__ppIf]; STATE 52 [sym__ppElse]; STATE 10309 [sym__ppEndIf];
   STATE 51 [sym_ppBlock; sym_declExports; sym_declTypes; sym_declVars; sym_declConsts;
   sym_declType]; STATE 58 [sym_declProc]; STATE 51 [sym_declVar; sym_declConst; sym_declLabels;
   sym_declField; sym_declProp]; STATE 1009 [sym__declProc]; STATE 1309 [sym__declOperator];
   STATE 2759 [sym_rttiAttributes]; STATE 13110 [aux_sym_genericArg_repeat1];
   STATE 6994 [aux_sym_literalString_repeat1]; STATE 51 [aux_sym_ppBlock_repeat1];
   STATE 11966 [aux_sym_ppBlock_repeat2]; STATE 5428 [aux_sym_declVar_repeat1];
   STATE 2888 [aux_sym_rttiAttributes_repeat2]; ACTIONS 41 [anon_sym_SEMI];
   ACTIONS 149 [anon_sym_COMMA]; ACTIONS 45 [anon_sym_LBRACK]; ACTIONS 47 [anon_sym_LPAREN];
   ACTIONS 49 [aux_sym__literalString_token1]; ACTIONS 51 [anon_sym_POUND];
   ACTIONS 53 [aux_sym__literalInt_token1]; ACTIONS 55 [aux_sym__literalInt_token2;
   aux_sym__literalInt_token3]; ACTIONS 53 [aux_sym__literalFloat_token1];
   ACTIONS 11 [aux_sym_ppUsesBlock_token1]; ACTIONS 57 [aux_sym_ppUsesBlock_token2];
   ACTIONS 189 [aux_sym_ppUsesBlock_token3]; ACTIONS 61 [sym_kAdd; sym_kSub];
   ACTIONS 63 [sym_kAt]; ACTIONS 65 [sym_kTrue; sym_kFalse]; ACTIONS 3 [sym__space];
   ACTIONS 5 [sym_ppDirective]; ACTIONS 3 [sym_comment]; ACTIONS 65 [sym_ppFragmentExpr];
   ACTIONS 49 [sym__literalStringMultiline]; ACTIONS 67 [sym_identifier];
   ACTIONS 69 [sym_kDefault; sym_kNodefault; sym_kDispId]; ACTIONS 71 [sym_kGeneric];
   ACTIONS 73 [sym_kSpecialize]; ACTIONS 75 [sym_kOperator]; ACTIONS 69 [sym_kPublic;
   sym_kStatic; sym_kVirtual; sym_kAbstract; sym_kDynamic; sym_kOverride; sym_kOverload;
   sym_kReintroduce; sym_kStdcall; sym_kCdecl; sym_kCppdecl; sym_kPascal; sym_kRegister;
   sym_kMwpascal; sym_kMessage; sym_kDeprecated; sym_kExperimental; sym_kPlatform;
   sym_kUnimplemented; sym_kCvar; sym_kExport; sym_kFar; sym_kNear; sym_kSafecall;
   sym_kAssembler; sym_kNostackframe; sym_kInterrupt; sym_kNoreturn; sym_kIocheck; sym_kLocal;
   sym_kHardfloat; sym_kSoftfloat; sym_kMs_abi_default; sym_kMs_abi_cdecl; sym_kSaveregisters;
   sym_kSysv_abi_default; sym_kSysv_abi_cdecl; sym_kVectorcall; sym_kVarargs; sym_kWinapi;
   sym_kAlias]; ACTIONS 83 [sym_kAsm]; ACTIONS 85 [sym_kBegin]; ACTIONS 87 [sym_kCase];
   ACTIONS 89 [sym_kClass]; ACTIONS 91 [sym_kConst]; ACTIONS 93 [sym_kConstructor;
   sym_kDestructor]; ACTIONS 95 [sym_kExports]; ACTIONS 97 [sym_kFor];
   ACTIONS 99 [sym_kFunction]; ACTIONS 101 [sym_kGoto]; ACTIONS 103 [sym_kIf];
   ACTIONS 105 [sym_kInherited]; ACTIONS 107 [sym_kLabel]; ACTIONS 65 [sym_kNil];
   ACTIONS 63 [sym_kNot]; ACTIONS 99 [sym_kProcedure]; ACTIONS 109 [sym_kProperty];
   ACTIONS 111 [sym_kRaise]; ACTIONS 113 [sym_kRepeat]; ACTIONS 115 [sym_kResourcestring];
   ACTIONS 117 [sym_kString]; ACTIONS 119 [sym_kThreadvar]; ACTIONS 121 [sym_kTry];
   ACTIONS 123 [sym_kType]; ACTIONS 125 [sym_kUses]; ACTIONS 127 [sym_kVar];
   ACTIONS 129 [sym_kWhile]; ACTIONS 131 [sym_kWith]].

(** State 40. *)
Definition ts_parse_table_40 : parse_row :=
  [STATE 1310 [sym_if]; STATE 47 [sym_ifElse; sym_while; sym_repeat; sym_for; sym_foreach;
   sym_try; sym_case; sym_block; sym_asm; sym_with; sym_raise; sym_statement; sym_goto;
   sym__statement]; STATE 15141 [sym_assignment]; STATE 11829 [sym_varAssignDef];
   STATE 15141 [sym_varDef; sym_constDef]; STATE 8220 [sym__expr; sym_exprConditional];
   STATE 7765 [sym__ref; sym_lambda; sym_inherited; sym_exprDot; sym_exprDeref; sym_exprAs;
   sym_exprTpl; sym_exprSubscript; sym_exprCall]; STATE 8220 [sym_exprBinary; sym_exprUnary];
   STATE 7765 [sym_exprParens; sym_exprBrackets]; STATE 12283 [sym_genericDot; sym_genericTpl;
   sym__genericName]; STATE 7765 [sym__literal; sym_literalString];
   STATE 6994 [sym__literalString; sym_literalChar]; STATE 7765 [sym_literalNumber];
   STATE 7888 [sym__literalInt; sym__literalFloat]; STATE 47 [sym_defProc; sym_declProcFwd;
   sym_declUses]; STATE 12 [sym__ppIf]; STATE 52 [sym__ppElse]; STATE 9925 [sym__ppEndIf];
   STATE 47 [sym_ppBlock; sym_declExports; sym_declTypes; sym_declVars; sym_declConsts;
   sym_declType]; STATE 58 [sym_declProc]; STATE 47 [sym_declVar; sym_declConst; sym_declLabels;
   sym_declField; sym_declProp]; STATE 1009 [sym__declProc]; STATE 1309 [sym__declOperator];
   STATE 2759 [sym_rttiAttributes]; STATE 13110 [aux_sym_genericArg_repeat1];
   STATE 6994 [aux_sym_literalString_repeat1]; STATE 47 [aux_sym_ppBlock_repeat1];
   STATE 11828 [aux_sym_ppBlock_repeat2]; STATE 5428 [aux_sym_declVar_repeat1];
   STATE 2888 [aux_sym_rttiAttributes_repeat2]; ACTIONS 41 [anon_sym_SEMI];
   ACTIONS 203 [anon_sym_COMMA]; ACTIONS 45 [anon_sym_LBRACK]; ACTIONS 47 [anon_sym_LPAREN];
   ACTIONS 49 [aux_sym__literalString_token1]; ACTIONS 51 [anon_sym_POUND];
   ACTIONS 53 [aux_sym__literalInt_token1]; ACTIONS 55 [aux_sym__literalInt_token2;
   aux_sym__literalInt_token3]; ACTIONS 53 [aux_sym__literalFloat_token1];
   ACTIONS 11 [aux_sym_ppUsesBlock_token1]; ACTIONS 57 [aux_sym_ppUsesBlock_token2];
   ACTIONS 205 [aux_sym_ppUsesBlock_token3]; ACTIONS 61 [sym_kAdd; sym_kSub];
   ACTIONS 63 [sym_kAt]; ACTIONS 65 [sym_kTrue; sym_kFalse]; ACTIONS 3 [sym__space];
   ACTIONS 5 [sym_ppDirective]; ACTIONS 3 [sym_comment]; ACTIONS 65 [sym_ppFragmentExpr];
   ACTIONS 49 [sym__literalStringMultiline]; ACTIONS 67 [sym_identifier];
   ACTIONS 69 [sym_kDefault; sym_kNodefault; sym_kDispId]; ACTIONS 71 [sym_kGeneric];
   ACTIONS 73 [sym_kSpecialize]; ACTIONS 75 [sym_kOperator]; ACTIONS 69 [sym_kPublic;
   sym_kStatic; sym_kVirtual; sym_kAbstract; sym_kDynamic; sym_kOverride; sym_kOverload;
   sym_kReintroduce; sym_kStdcall; sym_kCdecl; sym_kCppdecl; sym_kPascal; sym_kRegister;
   sym_kMwpascal; sym_kMessage; sym_kDeprecated; sym_kExperimental; sym_kPlatform;
   sym_kUnimplemented; sym_kCvar; sym_kExport; sym_kFar; sym_kNear; sym_kSafecall;
   sym_kAssembler; sym_kNostackframe; sym_kInterrupt; sym_kNoreturn; sym_kIocheck; sym_kLocal;
   sym_kHardfloat; sym_kSoftfloat; sym_kMs_abi_default; sym_kMs_abi_cdecl; sym_kSaveregisters;
   sym_kSysv_abi_default; sym_kSysv_abi_cdecl; sym_kVectorcall; sym_kVarargs; sym_kWinapi;
   sym_kAlias]; ACTIONS 83 [sym_kAsm]; ACTIONS 85 [sym_kBegin]; ACTIONS 87 [sym_kCase];
   ACTIONS 89 [sym_kClass]; ACTIONS 91 [sym_kConst]; ACTIONS 93 [sym_kConstructor;
   sym_kDestructor]; ACTIONS 95 [sym_kExports]; ACTIONS 97 [sym_kFor];
   ACTIONS 99 [sym_kFunction]; ACTIONS 101 [sym_kGoto]; ACTIONS 103 [sym_kIf];
   ACTIONS 105 [sym_kInherited]; ACTIONS 107 [sym_kLabel]; ACTIONS 65 [sym_kNil];
   ACTIONS 63 [sym_kNot]; ACTIONS 99 [sym_kProcedure]; ACTIONS 109 [sym_kProperty];
   ACTIONS 111 [sym_kRaise]; ACTIONS 113 [sym_kRepeat]; ACTIONS 115 [sym_kResourcestring];
   ACTIONS 117 [sym_kString]; ACTIONS 119 [sym_kThreadvar]; ACTIONS 121 [sym_kTry];
   ACTIONS 123 [sym_kType]; ACTIONS 125 [sym_kUses]; ACTIONS 127 [sym_kVar];
   ACTIONS 129 [sym_kWhile]; ACTIONS 131 [sym_kWith]].

(** State 41. *)
Definition ts_parse_table_41 : parse_row :=
  [STATE 1310 [sym_if]; STATE 51 [sym_ifElse; sym_while; sym_repeat; sym_for; sym_foreach;
   sym_try; sym_case; sym_block; sym_asm; sym_with; sym_raise; sym_statement; sym_goto;
   sym__statement]; STATE 15141 [sym_assignment]; STATE 11829 [sym_varAssignDef];
   STATE 15141 [sym_varDef; sym_constDef]; STATE 8220 [sym__expr; sym_exprConditional];
   STATE 7765 [sym__ref; sym_lambda; sym_inherited; sym_exprDot; sym_exprDeref; sym_exprAs;
   sym_exprTpl; sym_exprSubscript; sym_exprCall]; STATE 8220 [sym_exprBinary; sym_exprUnary];
   STATE 7765 [sym_exprParens; sym_exprBrackets]; STATE 12283 [sym_genericDot; sym_genericTpl;
   sym__genericName]; STATE 7765 [sym__literal; sym_literalString];
   STATE 6994 [sym__literalString; sym_literalChar]; STATE 7765 [sym_literalNumber];
   STATE 7888 [sym__literalInt; sym__literalFloat]; STATE 51 [sym_defProc; sym_declProcFwd;
   sym_declUses]; STATE 12 [sym__ppIf]; STATE 52 [sym__ppElse]; STATE 2566 [sym__ppEndIf];
   STATE 51 [sym_ppBlock; sym_declExports; sym_declTypes; sym_declVars; sym_declConsts;
   sym_declType]; STATE 58 [sym_declProc]; STATE 51 [sym_declVar; sym_declConst; sym_declLabels;
   sym_declField; sym_declProp]; STATE 1009 [sym__declProc]; STATE 1309 [sym__declOperator];
   STATE 2759 [sym_rttiAttributes]; STATE 13110 [aux_sym_genericArg_repeat1];
   STATE 6994 [aux_sym_literalString_repeat1]; STATE 51 [aux_sym_ppBlock_repeat1];
   STATE 11687 [aux_sym_ppBlock_repeat2]; STATE 5428 [aux_sym_declVar_repeat1];
   STATE 2888 [aux_sym_rttiAttributes_repeat2]; ACTIONS 41 [anon_sym_SEMI];
   ACTIONS 149 [anon_sym_COMMA]; ACTIONS 45 [anon_sym_LBRACK]; ACTIONS 47 [anon_sym_LPAREN];
   ACTIONS 49 [aux_sym__literalString_token1]; ACTIONS 51 [anon_sym_POUND];
   ACTIONS 53 [aux_sym__literalInt_token1]; ACTIONS 55 [aux_sym__literalInt_token2;
   aux_sym__literalInt_token3]; ACTIONS 53 [aux_sym__literalFloat_token1];
   ACTIONS 11 [aux_sym_ppUsesBlock_token1]; ACTIONS 57 [aux_sym_ppUsesBlock_token2];
   ACTIONS 193 [aux_sym_ppUsesBlock_token3]; ACTIONS 61 [sym_kAdd; sym_kSub];
   ACTIONS 63 [sym_kAt]; ACTIONS 65 [sym_kTrue; sym_kFalse]; ACTIONS 3 [sym__space];
   ACTIONS 5 [sym_ppDirective]; ACTIONS 3 [sym_comment]; ACTIONS 65 [sym_ppFragmentExpr];
   ACTIONS 49 [sym__literalStringMultiline]; ACTIONS 67 [sym_identifier];
   ACTIONS 69 [sym_kDefault; sym_kNodefault; sym_kDispId]; ACTIONS 71 [sym_kGeneric];
   ACTIONS 73 [sym_kSpecialize]; ACTIONS 75 [sym_kOperator]; ACTIONS 69 [sym_kPublic;
   sym_kStatic; sym_kVirtual; sym_kAbstract; sym_kDynamic; sym_kOverride; sym_kOverload;
   sym_kReintroduce; sym_kStdcall; sym_kCdecl; sym_kCppdecl; sym_kPascal; sym_kRegister;
   sym_kMwpascal; sym_kMessage; sym_kDeprecated; sym_kExperimental; sym_kPlatform;
   sym_kUnimplemented; sym_kCvar; sym_kExport; sym_kFar; sym_kNear; sym_kSafecall;
   sym_kAssembler; sym_kNostackframe; sym_kInterrupt; sym_kNoreturn; sym_kIocheck; sym_kLocal;
   sym_kHardfloat; sym_kSoftfloat; sym_kMs_abi_default; sym_kMs_abi_cdecl; sym_kSaveregisters;
   sym_kSysv_abi_default; sym_kSysv_abi_cdecl; sym_kVectorcall; sym_kVarargs; sym_kWinapi;
   sym_kAlias]; ACTIONS 83 [sym_kAsm]; ACTIONS 85 [sym_kBegin]; ACTIONS 87 [sym_kCase];
   ACTIONS 89 [sym_kClass]; ACTIONS 91 [sym_kConst]; ACTIONS 93 [sym_kConstructor;
   sym_kDestructor]; ACTIONS 95 [sym_kExports]; ACTIONS 97 [sym_kFor];
   ACTIONS 99 [sym_kFunction]; ACTIONS 101 [sym_kGoto]; ACTIONS 103 [sym_kIf];
   ACTIONS 105 [sym_kInherited]; ACTIONS 107 [sym_kLabel]; ACTIONS 65 [sym_kNil];
   ACTIONS 63 [sym_kNot]; ACTIONS 99 [sym_kProcedure]; ACTIONS 109 [sym_kProperty];
   ACTIONS 111 [sym_kRaise]; ACTIONS 113 [sym_kRepeat]; ACTIONS 115 [sym_kResourcestring];
   ACTIONS 117 [sym_kString]; ACTIONS 119 [sym_kThreadvar]; ACTIONS 121 [sym_kTry];
   ACTIONS 123 [sym_kType]; ACTIONS 125 [sym_kUses]; ACTIONS 127 [sym_kVar];
   ACTIONS 129 [sym_kWhile]; ACTIONS 131 [sym_kWith]].

(** State 42. *)
Definition ts_parse_table_42 : parse_row :=
  [STATE 1310 [sym_if]; STATE 48 [sym_ifElse; sym_while; sym_repeat; sym_for; sym_foreach;
   sym_try; sym_case; sym_block; sym_asm; sym_with; sym_raise; sym_statement; sym_goto;
   sym__statement]; STATE 15141 [sym_assignment]; STATE 11829 [sym_varAssignDef];
   STATE 15141 [sym_varDef; sym_constDef]; STATE 8220 [sym__expr; sym_exprConditional];
   STATE 7765 [sym__ref; sym_lambda; sym_inherited; sym_exprDot; sym_exprDeref; sym_exprAs;
   sym_exprTpl; sym_exprSubscript; sym_exprCall]; STATE 8220 [sym_exprBinary; sym_exprUnary];
   STATE 7765 [sym_exprParens; sym_exprBrackets]; STATE 12283 [sym_genericDot; sym_genericTpl;
   sym__genericName]; STATE 7765 [sym__literal; sym_literalString];
   STATE 6994 [sym__literalString; sym_literalChar]; STATE 7765 [sym_literalNumber];
   STATE 7888 [sym__literalInt; sym__literalFloat]; STATE 48 [sym_defProc; sym_declProcFwd;
   sym_declUses]; STATE 12 [sym__ppIf]; STATE 52 [sym__ppElse]; STATE 2596 [sym__ppEndIf];
   STATE 48 [sym_ppBlock; sym_declExports; sym_declTypes; sym_declVars; sym_declConsts;
   sym_declType]; STATE 58 [sym_declProc]; STATE 48 [sym_declVar; sym_declConst; sym_declLabels;
   sym_declField; sym_declProp]; STATE 1009 [sym__declProc]; STATE 1309 [sym__declOperator];
   STATE 2759 [sym_rttiAttributes]; STATE 13110 [aux_sym_genericArg_repeat1];
   STATE 6994 [aux_sym_literalString_repeat1]; STATE 48 [aux_sym_ppBlock_repeat1];
   STATE 11853 [aux_sym_ppBlock_repeat2]; STATE 5428 [aux_sym_declVar_repeat1];
   STATE 2888 [aux_sym_rttiAttributes_repeat2]; ACTIONS 41 [anon_sym_SEMI];
   ACTIONS 207 [anon_sym_COMMA]; ACTIONS 45 [anon_sym_LBRACK]; ACTIONS 47 [anon_sym_LPAREN];
   ACTIONS 49 [aux_sym__literalString_token1]; ACTIONS 51 [anon_sym_POUND];
   ACTIONS 53 [aux_sym__literalInt_token1]; ACTIONS 55 [aux_sym__literalInt_token2;
   aux_sym__literalInt_token3]; ACTIONS 53 [aux_sym__literalFloat_token1];
   ACTIONS 11 [aux_sym_ppUsesBlock_token1]; ACTIONS 57 [aux_sym_ppUsesBlock_token2];
   ACTIONS 209 [aux_sym_ppUsesBlock_token3]; ACTIONS 61 [sym_kAdd; sym_kSub];
   ACTIONS 63 [sym_kAt]; ACTIONS 65 [sym_kTrue; sym_kFalse]; ACTIONS 3 [sym__space];
   ACTIONS 5 [sym_ppDirective]; ACTIONS 3 [sym_comment]; ACTIONS 65 [sym_ppFragmentExpr];
   ACTIONS 49 [sym__literalStringMultiline]; ACTIONS 67 [sym_identifier];
   ACTIONS 69 [sym_kDefault; sym_kNodefault; sym_kDispId]; ACTIONS 71 [sym_kGeneric];
   ACTIONS 73 [sym_kSpecialize]; ACTIONS 75 [sym_kOperator]; ACTIONS 69 [sym_kPublic;
   sym_kStatic; sym_kVirtual; sym_kAbstract; sym_kDynamic; sym_kOverride; sym_kOverload;
   sym_kReintroduce; sym_kStdcall; sym_kCdecl; sym_kCppdecl; sym_kPascal; sym_kRegister;
   sym_kMwpascal; sym_kMessage; sym_kDeprecated; sym_kExperimental; sym_kPlatform;
   sym_kUnimplemented; sym_kCvar; sym_kExport; sym_kFar; sym_kNear; sym_kSafecall;
   sym_kAssembler; sym_kNostackframe; sym_kInterrupt; sym_kNoreturn; sym_kIocheck; sym_kLocal;
   sym_kHardfloat; sym_kSoftfloat; sym_kMs_abi_default; sym_kMs_abi_cdecl; sym_kSaveregisters;
   sym_kSysv_abi_default; sym_kSysv_abi_cdecl; sym_kVectorcall; sym_kVarargs; sym_kWinapi;
   sym_kAlias]; ACTIONS 83 [sym_kAsm]; ACTIONS 85 [sym_kBegin]; ACTIONS 87 [sym_kCase];
   ACTIONS 89 [sym_kClass]; ACTIONS 91 [sym_kConst]; ACTIONS 93 [sym_kConstructor;
   sym_kDestructor]; ACTIONS 95 [sym_kExports]; ACTIONS 97 [sym_kFor];
   ACTIONS 99 [sym_kFunction]; ACTIONS 101 [sym_kGoto]; ACTIONS 103 [sym_kIf];
   ACTIONS 105 [sym_kInherited]; ACTIONS 107 [sym_kLabel]; ACTIONS 65 [sym_kNil];
   ACTIONS 63 [sym_kNot]; ACTIONS 99 [sym_kProcedure]; ACTIONS 109 [sym_kProperty];
   ACTIONS 111 [sym_kRaise]; ACTIONS 113 [sym_kRepeat]; ACTIONS 115 [sym_kResourcestring];
   ACTIONS 117 [sym_kString]; ACTIONS 119 [sym_kThreadvar]; ACTIONS 121 [sym_kTry];
   ACTIONS 123 [sym_kType]; ACTIONS 125 [sym_kUses]; ACTIONS 127 [sym_kVar];
   ACTIONS 129 [sym_kWhile]; ACTIONS 131 [sym_kWith]].

(** State 43. *)
Definition ts_parse_table_43 : parse_row :=
  [STATE 1310 [sym_if]; STATE 51 [sym_ifElse; sym_while; sym_repeat; sym_for; sym_foreach;
   sym_try; sym_case; sym_block; sym_asm; sym_with; sym_raise; sym_statement; sym_goto;
   sym__statement]; STATE 15141 [sym_assignment]; STATE 11829 [sym_varAssignDef];
   STATE 15141 [sym_varDef; sym_constDef]; STATE 8220 [sym__expr; sym_exprConditional];
   STATE 7765 [sym__ref; sym_lambda; sym_inherited; sym_exprDot; sym_exprDeref; sym_exprAs;
   sym_exprTpl; sym_exprSubscript; sym_exprCall]; STATE 8220 [sym_exprBinary; sym_exprUnary];
   STATE 7765 [sym_exprParens; sym_exprBrackets]; STATE 12283 [sym_genericDot; sym_genericTpl;
   sym__genericName]; STATE 7765 [sym__literal; sym_literalString];
   STATE 6994 [sym__literalString; sym_literalChar]; STATE 7765 [sym_literalNumber];
   STATE 7888 [sym__literalInt; sym__literalFloat]; STATE 51 [sym_defProc; sym_declProcFwd;
   sym_declUses]; STATE 12 [sym__ppIf]; STATE 52 [sym__ppElse]; STATE 10121 [sym__ppEndIf];
   STATE 51 [sym_ppBlock; sym_declExports; sym_declTypes; sym_declVars; sym_declConsts;
   sym_declType]; STATE 58 [sym_declProc]; STATE 51 [sym_declVar; sym_declConst; sym_declLabels;
   sym_declField; sym_declProp]; STATE 1009 [sym__declProc]; STATE 1309 [sym__declOperator];
   STATE 2759 [sym_rttiAttributes]; STATE 13110 [aux_sym_genericArg_repeat1];
   STATE 6994 [aux_sym_literalString_repeat1]; STATE 51 [aux_sym_ppBlock_repeat1];
   STATE 11741 [aux_sym_ppBlock_repeat2]; STATE 5428 [aux_sym_declVar_repeat1];
   STATE 2888 [aux_sym_rttiAttributes_repeat2]; ACTIONS 41 [anon_sym_SEMI];
   ACTIONS 149 [anon_sym_COMMA]; ACTIONS 45 [anon_sym_LBRACK]; ACTIONS 47 [anon_sym_LPAREN];
   ACTIONS 49 [aux_sym__literalString_token1]; ACTIONS 51 [anon_sym_POUND];
   ACTIONS 53 [aux_sym__literalInt_token1]; ACTIONS 55 [aux_sym__literalInt_token2;
   aux_sym__literalInt_token3]; ACTIONS 53 [aux_sym__literalFloat_token1];
   ACTIONS 11 [aux_sym_ppUsesBlock_token1]; ACTIONS 57 [aux_sym_ppUsesBlock_token2];
   ACTIONS 135 [aux_sym_ppUsesBlock_token3]; ACTIONS 61 [sym_kAdd; sym_kSub];
   ACTIONS 63 [sym_kAt]; ACTIONS 65 [sym_kTrue; sym_kFalse]; ACTIONS 3 [sym__space];
   ACTIONS 5 [sym_ppDirective]; ACTIONS 3 [sym_comment]; ACTIONS 65 [sym_ppFragmentExpr];
   ACTIONS 49 [sym__literalStringMultiline]; ACTIONS 67 [sym_identifier];
   ACTIONS 69 [sym_kDefault; sym_kNodefault; sym_kDispId]; ACTIONS 71 [sym_kGeneric];
   ACTIONS 73 [sym_kSpecialize]; ACTIONS 75 [sym_kOperator]; ACTIONS 69 [sym_kPublic;
   sym_kStatic; sym_kVirtual; sym_kAbstract; sym_kDynamic; sym_kOverride; sym_kOverload;
   sym_kReintroduce; sym_kStdcall; sym_kCdecl; sym_kCppdecl; sym_kPascal; sym_kRegister;
   sym_kMwpascal; sym_kMessage; sym_kDeprecated; sym_kExperimental; sym_kPlatform;
   sym_kUnimplemented; sym_kCvar; sym_kExport; sym_kFar; sym_kNear; sym_kSafecall;
   sym_kAssembler; sym_kNostackframe; sym_kInterrupt; sym_kNoreturn; sym_kIocheck; sym_kLocal;
   sym_kHardfloat; sym_kSoftfloat; sym_kMs_abi_default; sym_kMs_abi_cdecl; sym_kSaveregisters;
   sym_kSysv_abi_default; sym_kSysv_abi_cdecl; sym_kVectorcall; sym_kVarargs; sym_kWinapi;
   sym_kAlias]; ACTIONS 83 [sym_kAsm]; ACTIONS 85 [sym_kBegin]; ACTIONS 87 [sym_kCase];
   ACTIONS 89 [sym_kClass]; ACTIONS 91 [sym_kConst]; ACTIONS 93 [sym_kConstructor;
   sym_kDestructor]; ACTIONS 95 [sym_kExports]; ACTIONS 97 [sym_kFor];
   ACTIONS 99 [sym_kFunction]; ACTIONS 101 [sym_kGoto]; ACTIONS 103 [sym_kIf];
   ACTIONS 105 [sym_kInherited]; ACTIONS 107 [sym_kLabel]; ACTIONS 65 [sym_kNil];
   ACTIONS 63 [sym_kNot]; ACTIONS 99 [sym_kProcedure]; ACTIONS 109 [sym_kProperty];
   ACTIONS 111 [sym_kRaise]; ACTIONS 113 [sym_kRepeat]; ACTIONS 115 [sym_kResourcestring];
   ACTIONS 117 [sym_kString]; ACTIONS 119 [sym_kThreadvar]; ACTIONS 121 [sym_kTry];
   ACTIONS 123 [sym_kType]; ACTIONS 125 [sym_kUses]; ACTIONS 127 [sym_kVar];
   ACTIONS 129 [sym_kWhile]; ACTIONS 131 [sym_kWith]].

(** State 44. *)
Definition ts_parse_table_44 : parse_row :=
  [STATE 1310 [sym_if]; STATE 43 [sym_ifElse; sym_while; sym_repeat; sym_for; sym_foreach;
   sym_try; sym_case; sym_block; sym_asm; sym_with; sym_raise; sym_statement; sym_goto;
   sym__statement]; STATE 15141 [sym_assignment]; STATE 11829 [sym_varAssignDef];
   STATE 15141 [sym_varDef; sym_constDef]; STATE 8220 [sym__expr; sym_exprConditional];
   STATE 7765 [sym__ref; sym_lambda; sym_inherited; sym_exprDot; sym_exprDeref; sym_exprAs;
   sym_exprTpl; sym_exprSubscript; sym_exprCall]; STATE 8220 [sym_exprBinary; sym_exprUnary];
   STATE 7765 [sym_exprParens; sym_exprBrackets]; STATE 12283 [sym_genericDot; sym_genericTpl;
   sym__genericName]; STATE 7765 [sym__literal; sym_literalString];
   STATE 6994 [sym__literalString; sym_literalChar]; STATE 7765 [sym_literalNumber];
   STATE 7888 [sym__literalInt; sym__literalFloat]; STATE 43 [sym_defProc; sym_declProcFwd;
   sym_declUses]; STATE 12 [sym__ppIf]; STATE 52 [sym__ppElse]; STATE 10105 [sym__ppEndIf];
   STATE 43 [sym_ppBlock; sym_declExports; sym_declTypes; sym_declVars; sym_declConsts;
   sym_declType]; STATE 58 [sym_declProc]; STATE 43 [sym_declVar; sym_declConst; sym_declLabels;
   sym_declField; sym_declProp]; STATE 1009 [sym__declProc]; STATE 1309 [sym__declOperator];
   STATE 2759 [sym_rttiAttributes]; STATE 13110 [aux_sym_genericArg_repeat1];
   STATE 6994 [aux_sym_literalString_repeat1]; STATE 43 [aux_sym_ppBlock_repeat1];
   STATE 11737 [aux_sym_ppBlock_repeat2]; STATE 5428 [aux_sym_declVar_repeat1];
   STATE 2888 [aux_sym_rttiAttributes_repeat2]; ACTIONS 41 [anon_sym_SEMI];
   ACTIONS 133 [anon_sym_COMMA]; ACTIONS 45 [anon_sym_LBRACK]; ACTIONS 47 [anon_sym_LPAREN];
   ACTIONS 49 [aux_sym__literalString_token1]; ACTIONS 51 [anon_sym_POUND];
   ACTIONS 53 [aux_sym__literalInt_token1]; ACTIONS 55 [aux_sym__literalInt_token2;
   aux_sym__literalInt_token3]; ACTIONS 53 [aux_sym__literalFloat_token1];
   ACTIONS 11 [aux_sym_ppUsesBlock_token1]; ACTIONS 57 [aux_sym_ppUsesBlock_token2];
   ACTIONS 135 [aux_sym_ppUsesBlock_token3]; ACTIONS 61 [sym_kAdd; sym_kSub];
   ACTIONS 63 [sym_kAt]; ACTIONS 65 [sym_kTrue; sym_kFalse]; ACTIONS 3 [sym__space];
   ACTIONS 5 [sym_ppDirective]; ACTIONS 3 [sym_comment]; ACTIONS 65 [sym_ppFragmentExpr];
   ACTIONS 49 [sym__literalStringMultiline]; ACTIONS 67 [sym_identifier];
   ACTIONS 69 [sym_kDefault; sym_kNodefault; sym_kDispId]; ACTIONS 71 [sym_kGeneric];
   ACTIONS 73 [sym_kSpecialize]; ACTIONS 75 [sym_kOperator]; ACTIONS 69 [sym_kPublic;
   sym_kStatic; sym_kVirtual; sym_kAbstract; sym_kDynamic; sym_kOverride; sym_kOverload;
   sym_kReintroduce; sym_kStdcall; sym_kCdecl; sym_kCppdecl; sym_kPascal; sym_kRegister;
   sym_kMwpascal; sym_kMessage; sym_kDeprecated; sym_kExperimental; sym_kPlatform;
   sym_kUnimplemented; sym_kCvar; sym_kExport; sym_kFar; sym_kNear; sym_kSafecall;
   sym_kAssembler; sym_kNostackframe; sym_kInterrupt; sym_kNoreturn; sym_kIocheck; sym_kLocal;
   sym_kHardfloat; sym_kSoftfloat; sym_kMs_abi_default; sym_kMs_abi_cdecl; sym_kSaveregisters;
   sym_kSysv_abi_default; sym_kSysv_abi_cdecl; sym_kVectorcall; sym_kVarargs; sym_kWinapi;
   sym_kAlias]; ACTIONS 83 [sym_kAsm]; ACTIONS 85 [sym_kBegin]; ACTIONS 87 [sym_kCase];
   ACTIONS 89 [sym_kClass]; ACTIONS 91 [sym_kConst]; ACTIONS 93 [sym_kConstructor;
   sym_kDestructor]; ACTIONS 95 [sym_kExports]; ACTIONS 97 [sym_kFor];
   ACTIONS 99 [sym_kFunction]; ACTIONS 101 [sym_kGoto]; ACTIONS 103 [sym_kIf];
   ACTIONS 105 [sym_kInherited]; ACTIONS 107 [sym_kLabel]; ACTIONS 65 [sym_kNil];
   ACTIONS 63 [sym_kNot]; ACTIONS 99 [sym_kProcedure]; ACTIONS 109 [sym_kProperty];
   ACTIONS 111 [sym_kRaise]; ACTIONS 113 [sym_kRepeat]; ACTIONS 115 [sym_kResourcestring];
   ACTIONS 117 [sym_kString]; ACTIONS 119 [sym_kThreadvar]; ACTIONS 121 [sym_kTry];
   ACTIONS 123 [sym_kType]; ACTIONS 125 [sym_kUses]; ACTIONS 127 [sym_kVar];
   ACTIONS 129 [sym_kWhile]; ACTIONS 131 [sym_kWith]].

(** State 45. *)
Definition ts_parse_table_45 : parse_row :=
  [STATE 1310 [sym_if]; STATE 51 [sym_ifElse; sym_while; sym_repeat; sym_for; sym_foreach;
   sym_try; sym_case; sym_block; sym_asm; sym_with; sym_raise; sym_statement; sym_goto;
   sym__statement]; STATE 15141 [sym_assignment]; STATE 11829 [sym_varAssignDef];
   STATE 15141 [sym_varDef; sym_constDef]; STATE 8220 [sym__expr; sym_exprConditional];
   STATE 7765 [sym__ref; sym_lambda; sym_inherited; sym_exprDot; sym_exprDeref; sym_exprAs;
   sym_exprTpl; sym_exprSubscript; sym_exprCall]; STATE 8220 [sym_exprBinary; sym_exprUnary];
   STATE 7765 [sym_exprParens; sym_exprBrackets]; STATE 12283 [sym_genericDot; sym_genericTpl;
   sym__genericName]; STATE 7765 [sym__literal; sym_literalString];
   STATE 6994 [sym__literalString; sym_literalChar]; STATE 7765 [sym_literalNumber];
   STATE 7888 [sym__literalInt; sym__literalFloat]; STATE 51 [sym_defProc; sym_declProcFwd;
   sym_declUses]; STATE 12 [sym__ppIf]; STATE 52 [sym__ppElse]; STATE 9834 [sym__ppEndIf];
   STATE 51 [sym_ppBlock; sym_declExports; sym_declTypes; sym_declVars; sym_declConsts;
   sym_declType]; STATE 58 [sym_declProc]; STATE 51 [sym_declVar; sym_declConst; sym_declLabels;
   sym_declField; sym_declProp]; STATE 1009 [sym__declProc]; STATE 1309 [sym__declOperator];
   STATE 2759 [sym_rttiAttributes]; STATE 13110 [aux_sym_genericArg_repeat1];
   STATE 6994 [aux_sym_literalString_repeat1]; STATE 51 [aux_sym_ppBlock_repeat1];
   STATE 11773 [aux_sym_ppBlock_repeat2]; STATE 5428 [aux_sym_declVar_repeat1];
   STATE 2888 [aux_sym_rttiAttributes_repeat2]; ACTIONS 41 [anon_sym_SEMI];
   ACTIONS 149 [anon_sym_COMMA]; ACTIONS 45 [anon_sym_LBRACK]; ACTIONS 47 [anon_sym_LPAREN];
   ACTIONS 49 [aux_sym__literalString_token1]; ACTIONS 51 [anon_sym_POUND];
   ACTIONS 53 [aux_sym__literalInt_token1]; ACTIONS 55 [aux_sym__literalInt_token2;
   aux_sym__literalInt_token3]; ACTIONS 53 [aux_sym__literalFloat_token1];
   ACTIONS 11 [aux_sym_ppUsesBlock_token1]; ACTIONS 57 [aux_sym_ppUsesBlock_token2];
   ACTIONS 197 [aux_sym_ppUsesBlock_token3]; ACTIONS 61 [sym_kAdd; sym_kSub];
   ACTIONS 63 [sym_kAt]; ACTIONS 65 [sym_kTrue; sym_kFalse]; ACTIONS 3 [sym__space];
   ACTIONS 5 [sym_ppDirective]; ACTIONS 3 [sym_comment]; ACTIONS 65 [sym_ppFragmentExpr];
   ACTIONS 49 [sym__literalStringMultiline]; ACTIONS 67 [sym_identifier];
   ACTIONS 69 [sym_kDefault; sym_kNodefault; sym_kDispId]; ACTIONS 71 [sym_kGeneric];
   ACTIONS 73 [sym_kSpecialize]; ACTIONS 75 [sym_kOperator]; ACTIONS 69 [sym_kPublic;
   sym_kStatic; sym_kVirtual; sym_kAbstract; sym_kDynamic; sym_kOverride; sym_kOverload;
   sym_kReintroduce; sym_kStdcall; sym_kCdecl; sym_kCppdecl; sym_kPascal; sym_kRegister;
   sym_kMwpascal; sym_kMessage; sym_kDeprecated; sym_kExperimental; sym_kPlatform;
   sym_kUnimplemented; sym_kCvar; sym_kExport; sym_kFar; sym_kNear; sym_kSafecall;
   sym_kAssembler; sym_kNostackframe; sym_kInterrupt; sym_kNoreturn; sym_kIocheck; sym_kLocal;
   sym_kHardfloat; sym_kSoftfloat; sym_kMs_abi_default; sym_kMs_abi_cdecl; sym_kSaveregisters;
   sym_kSysv_abi_default; sym_kSysv_abi_cdecl; sym_kVectorcall; sym_kVarargs; sym_kWinapi;
   sym_kAlias]; ACTIONS 83 [sym_kAsm]; ACTIONS 85 [sym_kBegin]; ACTIONS 87 [sym_kCase];
   ACTIONS 89 [sym_kClass]; ACTIONS 91 [sym_kConst]; ACTIONS 93 [sym_kConstructor;
   sym_kDestructor]; ACTIONS 95 [sym_kExports]; ACTIONS 97 [sym_kFor];
   ACTIONS 99 [sym_kFunction]; ACTIONS 101 [sym_kGoto]; ACTIONS 103 [sym_kIf];
   ACTIONS 105 [sym_kInherited]; ACTIONS 107 [sym_kLabel]; ACTIONS 65 [sym_kNil];
   ACTIONS 63 [sym_kNot]; ACTIONS 99 [sym_kProcedure]; ACTIONS 109 [sym_kProperty];
   ACTIONS 111 [sym_kRaise]; ACTIONS 113 [sym_kRepeat]; ACTIONS 115 [sym_kResourcestring];
   ACTIONS 117 [sym_kString]; ACTIONS 119 [sym_kThreadvar]; ACTIONS 121 [sym_kTry];
   ACTIONS 123 [sym_kType]; ACTIONS 125 [sym_kUses]; ACTIONS 127 [sym_kVar];
   ACTIONS 129 [sym_kWhile]; ACTIONS 131 [sym_kWith]].

(** State 46. *)
Definition ts_parse_table_46 : parse_row :=
  [STATE 1310 [sym_if]; STATE 51 [sym_ifElse; sym_while; sym_repeat; sym_for; sym_foreach;
   sym_try; sym_case; sym_block; sym_asm; sym_with; sym_raise; sym_statement; sym_goto;
   sym__statement]; STATE 15141 [sym_assignment]; STATE 11829 [sym_varAssignDef];
   STATE 15141 [sym_varDef; sym_constDef]; STATE 8220 [sym__expr; sym_exprConditional];
   STATE 7765 [sym__ref; sym_lambda; sym_inherited; sym_exprDot; sym_exprDeref; sym_exprAs;
   sym_exprTpl; sym_exprSubscript; sym_exprCall]; STATE 8220 [sym_exprBinary; sym_exprUnary];
   STATE 7765 [sym_exprParens; sym_exprBrackets]; STATE 12283 [sym_genericDot; sym_genericTpl;
   sym__genericName]; STATE 7765 [sym__literal; sym_literalString];
   STATE 6994 [sym__literalString; sym_literalChar]; STATE 7765 [sym_literalNumber];
   STATE 7888 [sym__literalInt; sym__literalFloat]; STATE 51 [sym_defProc; sym_declProcFwd;
   sym_declUses]; STATE 12 [sym__ppIf]; STATE 52 [sym__ppElse]; STATE 2587 [sym__ppEndIf];
   STATE 51 [sym_ppBlock; sym_declExports; sym_declTypes; sym_declVars; sym_declConsts;
   sym_declType]; STATE 58 [sym_declProc]; STATE 51 [sym_declVar; sym_declConst; sym_declLabels;
   sym_declField; sym_declProp]; STATE 1009 [sym__declProc]; STATE 1309 [sym__declOperator];
   STATE 2759 [sym_rttiAttributes]; STATE 13110 [aux_sym_genericArg_repeat1];
   STATE 6994 [aux_sym_literalString_repeat1]; STATE 51 [aux_sym_ppBlock_repeat1];
   STATE 11798 [aux_sym_ppBlock_repeat2]; STATE 5428 [aux_sym_declVar_repeat1];
   STATE 2888 [aux_sym_rttiAttributes_repeat2]; ACTIONS 41 [anon_sym_SEMI];
   ACTIONS 149 [anon_sym_COMMA]; ACTIONS 45 [anon_sym_LBRACK]; ACTIONS 47 [anon_sym_LPAREN];
   ACTIONS 49 [aux_sym__literalString_token1]; ACTIONS 51 [anon_sym_POUND];
   ACTIONS 53 [aux_sym__literalInt_token1]; ACTIONS 55 [aux_sym__literalInt_token2;
   aux_sym__literalInt_token3]; ACTIONS 53 [aux_sym__literalFloat_token1];
   ACTIONS 11 [aux_sym_ppUsesBlock_token1]; ACTIONS 57 [aux_sym_ppUsesBlock_token2];
   ACTIONS 201 [aux_sym_ppUsesBlock_token3]; ACTIONS 61 [sym_kAdd; sym_kSub];
   ACTIONS 63 [sym_kAt]; ACTIONS 65 [sym_kTrue; sym_kFalse]; ACTIONS 3 [sym__space];
   ACTIONS 5 [sym_ppDirective]; ACTIONS 3 [sym_comment]; ACTIONS 65 [sym_ppFragmentExpr];
   ACTIONS 49 [sym__literalStringMultiline]; ACTIONS 67 [sym_identifier];
   ACTIONS 69 [sym_kDefault; sym_kNodefault; sym_kDispId]; ACTIONS 71 [sym_kGeneric];
   ACTIONS 73 [sym_kSpecialize]; ACTIONS 75 [sym_kOperator]; ACTIONS 69 [sym_kPublic;
   sym_kStatic; sym_kVirtual; sym_kAbstract; sym_kDynamic; sym_kOverride; sym_kOverload;
   sym_kReintroduce; sym_kStdcall; sym_kCdecl; sym_kCppdecl; sym_kPascal; sym_kRegister;
   sym_kMwpascal; sym_kMessage; sym_kDeprecated; sym_kExperimental; sym_kPlatform;
   sym_kUnimplemented; sym_kCvar; sym_kExport; sym_kFar; sym_kNear; sym_kSafecall;
   sym_kAssembler; sym_kNostackframe; sym_kInterrupt; sym_kNoreturn; sym_kIocheck; sym_kLocal;
   sym_kHardfloat; sym_kSoftfloat; sym_kMs_abi_default; sym_kMs_abi_cdecl; sym_kSaveregisters;
   sym_kSysv_abi_default; sym_kSysv_abi_cdecl; sym_kVectorcall; sym_kVarargs; sym_kWinapi;
   sym_kAlias]; ACTIONS 83 [sym_kAsm]; ACTIONS 85 [sym_kBegin]; ACTIONS 87 [sym_kCase];
   ACTIONS 89 [sym_kClass]; ACTIONS 91 [sym_kConst]; ACTIONS 93 [sym_kConstructor;
   sym_kDestructor]; ACTIONS 95 [sym_kExports]; ACTIONS 97 [sym_kFor];
   ACTIONS 99 [sym_kFunction]; ACTIONS 101 [sym_kGoto]; ACTIONS 103 [sym_kIf];
   ACTIONS 105 [sym_kInherited]; ACTIONS 107 [sym_kLabel]; ACTIONS 65 [sym_kNil];
   ACTIONS 63 [sym_kNot]; ACTIONS 99 [sym_kProcedure]; ACTIONS 109 [sym_kProperty];
   ACTIONS 111 [sym_kRaise]; ACTIONS 113 [sym_kRepeat]; ACTIONS 115 [sym_kResourcestring];
   ACTIONS 117 [sym_kString]; ACTIONS 119 [sym_kThreadvar]; ACTIONS 121 [sym_kTry];
   ACTIONS 123 [sym_kType]; ACTIONS 125 [sym_kUses]; ACTIONS 127 [sym_kVar];
   ACTIONS 129 [sym_kWhile]; ACTIONS 131 [sym_kWith]].

(** State 47. *)
Definition ts_parse_table_47 : parse_row :=
  [STATE 1310 [sym_if]; STATE 51 [sym_ifElse; sym_while; sym_repeat; sym_for; sym_foreach;
   sym_try; sym_case; sym_block; sym_asm; sym_with; sym_raise; sym_statement; sym_goto;
   sym__statement]; STATE 15141 [sym_assignment]; STATE 11829 [sym_varAssignDef];
   STATE 15141 [sym_varDef; sym_constDef]; STATE 8220 [sym__expr; sym_exprConditional];
   STATE 7765 [sym__ref; sym_lambda; sym_inherited; sym_exprDot; sym_exprDeref; sym_exprAs;
   sym_exprTpl; sym_exprSubscript; sym_exprCall]; STATE 8220 [sym_exprBinary; sym_exprUnary];
   STATE 7765 [sym_exprParens; sym_exprBrackets]; STATE 12283 [sym_genericDot; sym_genericTpl;
   sym__genericName]; STATE 7765 [sym__literal; sym_literalString];
   STATE 6994 [sym__literalString; sym_literalChar]; STATE 7765 [sym_literalNumber];
   STATE 7888 [sym__literalInt; sym__literalFloat]; STATE 51 [sym_defProc; sym_declProcFwd;
   sym_declUses]; STATE 12 [sym__ppIf]; STATE 52 [sym__ppElse]; STATE 9934 [sym__ppEndIf];
   STATE 51 [sym_ppBlock; sym_declExports; sym_declTypes; sym_declVars; sym_declConsts;
   sym_declType]; STATE 58 [sym_declProc]; STATE 51 [sym_declVar; sym_declConst; sym_declLabels;
   sym_declField; sym_declProp]; STATE 1009 [sym__declProc]; STATE 1309 [sym__declOperator];
   STATE 2759 [sym_rttiAttributes]; STATE 13110 [aux_sym_genericArg_repeat1];
   STATE 6994 [aux_sym_literalString_repeat1]; STATE 51 [aux_sym_ppBlock_repeat1];
   STATE 11830 [aux_sym_ppBlock_repeat2]; STATE 5428 [aux_sym_declVar_repeat1];
   STATE 2888 [aux_sym_rttiAttributes_repeat2]; ACTIONS 41 [anon_sym_SEMI];
   ACTIONS 149 [anon_sym_COMMA]; ACTIONS 45 [anon_sym_LBRACK]; ACTIONS 47 [anon_sym_LPAREN];
   ACTIONS 49 [aux_sym__literalString_token1]; ACTIONS 51 [anon_sym_POUND];
   ACTIONS 53 [aux_sym__literalInt_token1]; ACTIONS 55 [aux_sym__literalInt_token2;
   aux_sym__literalInt_token3]; ACTIONS 53 [aux_sym__literalFloat_token1];
   ACTIONS 11 [aux_sym_ppUsesBlock_token1]; ACTIONS 57 [aux_sym_ppUsesBlock_token2];
   ACTIONS 205 [aux_sym_ppUsesBlock_token3]; ACTIONS 61 [sym_kAdd; sym_kSub];
   ACTIONS 63 [sym_kAt]; ACTIONS 65 [sym_kTrue; sym_kFalse]; ACTIONS 3 [sym__space];
   ACTIONS 5 [sym_ppDirective]; ACTIONS 3 [sym_comment]; ACTIONS 65 [sym_ppFragmentExpr];
   ACTIONS 49 [sym__literalStringMultiline]; ACTIONS 67 [sym_identifier];
   ACTIONS 69 [sym_kDefault; sym_kNodefault; sym_kDispId]; ACTIONS 71 [sym_kGeneric];
   ACTIONS 73 [sym_kSpecialize]; ACTIONS 75 [sym_kOperator]; ACTIONS 69 [sym_kPublic;
   sym_kStatic; sym_kVirtual; sym_kAbstract; sym_kDynamic; sym_kOverride; sym_kOverload;
   sym_kReintroduce; sym_kStdcall; sym_kCdecl; sym_kCppdecl; sym_kPascal; sym_kRegister;
   sym_kMwpascal; sym_kMessage; sym_kDeprecated; sym_kExperimental; sym_kPlatform;
   sym_kUnimplemented; sym_kCvar; sym_kExport; sym_kFar; sym_kNear; sym_kSafecall;
   sym_kAssembler; sym_kNostackframe; sym_kInterrupt; sym_kNoreturn; sym_kIocheck; sym_kLocal;
   sym_kHardfloat; sym_kSoftfloat; sym_kMs_abi_default; sym_kMs_abi_cdecl; sym_kSaveregisters;
   sym_kSysv_abi_default; sym_kSysv_abi_cdecl; sym_kVectorcall; sym_kVarargs; sym_kWinapi;
   sym_kAlias]; ACTIONS 83 [sym_kAsm]; ACTIONS 85 [sym_kBegin]; ACTIONS 87 [sym_kCase];
   ACTIONS 89 [sym_kClass]; ACTIONS 91 [sym_kConst]; ACTIONS 93 [sym_kConstructor;
   sym_kDestructor]; ACTIONS 95 [sym_kExports]; ACTIONS 97 [sym_kFor];
   ACTIONS 99 [sym_kFunction]; ACTIONS 101 [sym_kGoto]; ACTIONS 103 [sym_kIf];
   ACTIONS 105 [sym_kInherited]; ACTIONS 107 [sym_kLabel]; ACTIONS 65 [sym_kNil];
   ACTIONS 63 [sym_kNot]; ACTIONS 99 [sym_kProcedure]; ACTIONS 109 [sym_kProperty];
   ACTIONS 111 [sym_kRaise]; ACTIONS 113 [sym_kRepeat]; ACTIONS 115 [sym_kResourcestring];
   ACTIONS 117 [sym_kString]; ACTIONS 119 [sym_kThreadvar]; ACTIONS 121 [sym_kTry];
   ACTIONS 123 [sym_kType]; ACTIONS 125 [sym_kUses]; ACTIONS 127 [sym_kVar];
   ACTIONS 129 [sym_kWhile]; ACTIONS 131 [sym_kWith]].

(** State 48. *)
Definition ts_parse_table_48 : parse_row :=
  [STATE 1310 [sym_if]; STATE 51 [sym_ifElse; sym_while; sym_repeat; sym_for; sym_foreach;
   sym_try; sym_case; sym_block; sym_asm; sym_with; sym_raise; sym_statement; sym_goto;
   sym__statement]; STATE 15141 [sym_assignment]; STATE 11829 [sym_varAssignDef];
   STATE 15141 [sym_varDef; sym_constDef]; STATE 8220 [sym__expr; sym_exprConditional];
   STATE 7765 [sym__ref; sym_lambda; sym_inherited; sym_exprDot; sym_exprDeref; sym_exprAs;
   sym_exprTpl; sym_exprSubscript; sym_exprCall]; STATE 8220 [sym_exprBinary; sym_exprUnary];
   STATE 7765 [sym_exprParens; sym_exprBrackets]; STATE 12283 [sym_genericDot; sym_genericTpl;
   sym__genericName]; STATE 7765 [sym__literal; sym_literalString];
   STATE 6994 [sym__literalString; sym_literalChar]; STATE 7765 [sym_literalNumber];
   STATE 7888 [sym__literalInt; sym__literalFloat]; STATE 51 [sym_defProc; sym_declProcFwd;
   sym_declUses]; STATE 12 [sym__ppIf]; STATE 52 [sym__ppElse]; STATE 2597 [sym__ppEndIf];
   STATE 51 [sym_ppBlock; sym_declExports; sym_declTypes; sym_declVars; sym_declConsts;
   sym_declType]; STATE 58 [sym_declProc]; STATE 51 [sym_declVar; sym_declConst; sym_declLabels;
   sym_declField; sym_declProp]; STATE 1009 [sym__declProc]; STATE 1309 [sym__declOperator];
   STATE 2759 [sym_rttiAttributes]; STATE 13110 [aux_sym_genericArg_repeat1];
   STATE 6994 [aux_sym_literalString_repeat1]; STATE 51 [aux_sym_ppBlock_repeat1];
   STATE 11854 [aux_sym_ppBlock_repeat2]; STATE 5428 [aux_sym_declVar_repeat1];
   STATE 2888 [aux_sym_rttiAttributes_repeat2]; ACTIONS 41 [anon_sym_SEMI];
   ACTIONS 149 [anon_sym_COMMA]; ACTIONS 45 [anon_sym_LBRACK]; ACTIONS 47 [anon_sym_LPAREN];
   ACTIONS 49 [aux_sym__literalString_token1]; ACTIONS 51 [anon_sym_POUND];
   ACTIONS 53 [aux_sym__literalInt_token1]; ACTIONS 55 [aux_sym__literalInt_token2;
   aux_sym__literalInt_token3]; ACTIONS 53 [aux_sym__literalFloat_token1];
   ACTIONS 11 [aux_sym_ppUsesBlock_token1]; ACTIONS 57 [aux_sym_ppUsesBlock_token2];
   ACTIONS 209 [aux_sym_ppUsesBlock_token3]; ACTIONS 61 [sym_kAdd; sym_kSub];
   ACTIONS 63 [sym_kAt]; ACTIONS 65 [sym_kTrue; sym_kFalse]; ACTIONS 3 [sym__space];
   ACTIONS 5 [sym_ppDirective]; ACTIONS 3 [sym_comment]; ACTIONS 65 [sym_ppFragmentExpr];
   ACTIONS 49 [sym__literalStringMultiline]; ACTIONS 67 [sym_identifier];
   ACTIONS 69 [sym_kDefault; sym_kNodefault; sym_kDispId]; ACTIONS 71 [sym_kGeneric];
   ACTIONS 73 [sym_kSpecialize]; ACTIONS 75 [sym_kOperator]; ACTIONS 69 [sym_kPublic;
   sym_kStatic; sym_kVirtual; sym_kAbstract; sym_kDynamic; sym_kOverride; sym_kOverload;
   sym_kReintroduce; sym_kStdcall; sym_kCdecl; sym_kCppdecl; sym_kPascal; sym_kRegister;
   sym_kMwpascal; sym_kMessage; sym_kDeprecated; sym_kExperimental; sym_kPlatform;
   sym_kUnimplemented; sym_kCvar; sym_kExport; sym_kFar; sym_kNear; sym_kSafecall;
   sym_kAssembler; sym_kNostackframe; sym_kInterrupt; sym_kNoreturn; sym_kIocheck; sym_kLocal;
   sym_kHardfloat; sym_kSoftfloat; sym_kMs_abi_default; sym_kMs_abi_cdecl; sym_kSaveregisters;
   sym_kSysv_abi_default; sym_kSysv_abi_cdecl; sym_kVectorcall; sym_kVarargs; sym_kWinapi;
   sym_kAlias]; ACTIONS 83 [sym_kAsm]; ACTIONS 85 [sym_kBegin]; ACTIONS 87 [sym_kCase];
   ACTIONS 89 [sym_kClass]; ACTIONS 91 [sym_kConst]; ACTIONS 93 [sym_kConstructor;
   sym_kDestructor]; ACTIONS 95 [sym_kExports]; ACTIONS 97 [sym_kFor];
   ACTIONS 99 [sym_kFunction]; ACTIONS 101 [sym_kGoto]; ACTIONS 103 [sym_kIf];
   ACTIONS 105 [sym_kInherited]; ACTIONS 107 [sym_kLabel]; ACTIONS 65 [sym_kNil];
   ACTIONS 63 [sym_kNot]; ACTIONS 99 [sym_kProcedure]; ACTIONS 109 [sym_kProperty];
   ACTIONS 111 [sym_kRaise]; ACTIONS 113 [sym_kRepeat]; ACTIONS 115 [sym_kResourcestring];
   ACTIONS 117 [sym_kString]; ACTIONS 119 [sym_kThreadvar]; ACTIONS 121 [sym_kTry];
   ACTIONS 123 [sym_kType]; ACTIONS 125 [sym_kUses]; ACTIONS 127 [sym_kVar];
   ACTIONS 129 [sym_kWhile]; ACTIONS 131 [sym_kWith]].

(** State 49. *)
Definition ts_parse_table_49 : parse_row :=
  [STATE 1310 [sym_if]; STATE 51 [sym_ifElse; sym_while; sym_repeat; sym_for; sym_foreach;
   sym_try; sym_case; sym_block; sym_asm; sym_with; sym_raise; sym_statement; sym_goto;
   sym__statement]; STATE 15141 [sym_assignment]; STATE 11829 [sym_varAssignDef];
   STATE 15141 [sym_varDef; sym_constDef]; STATE 8220 [sym__expr; sym_exprConditional];
   STATE 7765 [sym__ref; sym_lambda; sym_inherited; sym_exprDot; sym_exprDeref; sym_exprAs;
   sym_exprTpl; sym_exprSubscript; sym_exprCall]; STATE 8220 [sym_exprBinary; sym_exprUnary];
   STATE 7765 [sym_exprParens; sym_exprBrackets]; STATE 12283 [sym_genericDot; sym_genericTpl;
   sym__genericName]; STATE 7765 [sym__literal; sym_literalString];
   STATE 6994 [sym__literalString; sym_literalChar]; STATE 7765 [sym_literalNumber];
   STATE 7888 [sym__literalInt; sym__literalFloat]; STATE 51 [sym_defProc; sym_declProcFwd;
   sym_declUses]; STATE 12 [sym__ppIf]; STATE 52 [sym__ppElse]; STATE 2680 [sym__ppEndIf];
   STATE 51 [sym_ppBlock; sym_declExports; sym_declTypes; sym_declVars; sym_declConsts;
   sym_declType]; STATE 58 [sym_declProc]; STATE 51 [sym_declVar; sym_declConst; sym_declLabels;
   sym_declField; sym_declProp]; STATE 1009 [sym__declProc]; STATE 1309 [sym__declOperator];
   STATE 2759 [sym_rttiAttributes]; STATE 13110 [aux_sym_genericArg_repeat1];
   STATE 6994 [aux_sym_literalString_repeat1]; STATE 51 [aux_sym_ppBlock_repeat1];
   STATE 11963 [aux_sym_ppBlock_repeat2]; STATE 5428 [aux_sym_declVar_repeat1];
   STATE 2888 [aux_sym_rttiAttributes_repeat2]; ACTIONS 41 [anon_sym_SEMI];
   ACTIONS 149 [anon_sym_COMMA]; ACTIONS 45 [anon_sym_LBRACK]; ACTIONS 47 [anon_sym_LPAREN];
   ACTIONS 49 [aux_sym__literalString_token1]; ACTIONS 51 [anon_sym_POUND];
   ACTIONS 53 [aux_sym__literalInt_token1]; ACTIONS 55 [aux_sym__literalInt_token2;
   aux_sym__literalInt_token3]; ACTIONS 53 [aux_sym__literalFloat_token1];
   ACTIONS 11 [aux_sym_ppUsesBlock_token1]; ACTIONS 57 [aux_sym_ppUsesBlock_token2];
   ACTIONS 171 [aux_sym_ppUsesBlock_token3]; ACTIONS 61 [sym_kAdd; sym_kSub];
   ACTIONS 63 [sym_kAt]; ACTIONS 65 [sym_kTrue; sym_kFalse]; ACTIONS 3 [sym__space];
   ACTIONS 5 [sym_ppDirective]; ACTIONS 3 [sym_comment]; ACTIONS 65 [sym_ppFragmentExpr];
   ACTIONS 49 [sym__literalStringMultiline]; ACTIONS 67 [sym_identifier];
   ACTIONS 69 [sym_kDefault; sym_kNodefault; sym_kDispId]; ACTIONS 71 [sym_kGeneric];
   ACTIONS 73 [sym_kSpecialize]; ACTIONS 75 [sym_kOperator]; ACTIONS 69 [sym_kPublic;
   sym_kStatic; sym_kVirtual; sym_kAbstract; sym_kDynamic; sym_kOverride; sym_kOverload;
   sym_kReintroduce; sym_kStdcall; sym_kCdecl; sym_kCppdecl; sym_kPascal; sym_kRegister;
   sym_kMwpascal; sym_kMessage; sym_kDeprecated; sym_kExperimental; sym_kPlatform;
   sym_kUnimplemented; sym_kCvar; sym_kExport; sym_kFar; sym_kNear; sym_kSafecall;
   sym_kAssembler; sym_kNostackframe; sym_kInterrupt; sym_kNoreturn; sym_kIocheck; sym_kLocal;
   sym_kHardfloat; sym_kSoftfloat; sym_kMs_abi_default; sym_kMs_abi_cdecl; sym_kSaveregisters;
   sym_kSysv_abi_default; sym_kSysv_abi_cdecl; sym_kVectorcall; sym_kVarargs; sym_kWinapi;
   sym_kAlias]; ACTIONS 83 [sym_kAsm]; ACTIONS 85 [sym_kBegin]; ACTIONS 87 [sym_kCase];
   ACTIONS 89 [sym_kClass]; ACTIONS 91 [sym_kConst]; ACTIONS 93 [sym_kConstructor;
   sym_kDestructor]; ACTIONS 95 [sym_kExports]; ACTIONS 97 [sym_kFor];
   ACTIONS 99 [sym_kFunction]; ACTIONS 101 [sym_kGoto]; ACTIONS 103 [sym_kIf];
   ACTIONS 105 [sym_kInherited]; ACTIONS 107 [sym_kLabel]; ACTIONS 65 [sym_kNil];
   ACTIONS 63 [sym_kNot]; ACTIONS 99 [sym_kProcedure]; ACTIONS 109 [sym_kProperty];
   ACTIONS 111 [sym_kRaise]; ACTIONS 113 [sym_kRepeat]; ACTIONS 115 [sym_kResourcestring];
   ACTIONS 117 [sym_kString]; ACTIONS 119 [sym_kThreadvar]; ACTIONS 121 [sym_kTry];
   ACTIONS 123 [sym_kType]; ACTIONS 125 [sym_kUses]; ACTIONS 127 [sym_kVar];
   ACTIONS 129 [sym_kWhile]; ACTIONS 131 [sym_kWith]].

(** State 50. *)
Definition ts_parse_table_50 : parse_row :=
  [STATE 1310 [sym_if]; STATE 51 [sym_ifElse; sym_while; sym_repeat; sym_for; sym_foreach;
   sym_try; sym_case; sym_block; sym_asm; sym_with; sym_raise; sym_statement; sym_goto;
   sym__statement]; STATE 15141 [sym_assignment]; STATE 11829 [sym_varAssignDef];
   STATE 15141 [sym_varDef; sym_constDef]; STATE 8220 [sym__expr; sym_exprConditional];
   STATE 7765 [sym__ref; sym_lambda; sym_inherited; sym_exprDot; sym_exprDeref; sym_exprAs;
   sym_exprTpl; sym_exprSubscript; sym_exprCall]; STATE 8220 [sym_exprBinary; sym_exprUnary];
   STATE 7765 [sym_exprParens; sym_exprBrackets]; STATE 12283 [sym_genericDot; sym_genericTpl;
   sym__genericName]; STATE 7765 [sym__literal; sym_literalString];
   STATE 6994 [sym__literalString; sym_literalChar]; STATE 7765 [sym_literalNumber];
   STATE 7888 [sym__literalInt; sym__literalFloat]; STATE 51 [sym_defProc; sym_declProcFwd;
   sym_declUses]; STATE 12 [sym__ppIf]; STATE 51 [sym_ppBlock; sym_declExports; sym_declTypes;
   sym_declVars; sym_declConsts; sym_declType]; STATE 58 [sym_declProc]; STATE 51 [sym_declVar;
   sym_declConst; sym_declLabels; sym_declField; sym_declProp]; STATE 1009 [sym__declProc];
   STATE 1309 [sym__declOperator]; STATE 2759 [sym_rttiAttributes];
   STATE 13110 [aux_sym_genericArg_repeat1]; STATE 6994 [aux_sym_literalString_repeat1];
   STATE 51 [aux_sym_ppBlock_repeat1]; STATE 5428 [aux_sym_declVar_repeat1];
   STATE 2888 [aux_sym_rttiAttributes_repeat2]; ACTIONS 41 [anon_sym_SEMI];
   ACTIONS 149 [anon_sym_COMMA]; ACTIONS 45 [anon_sym_LBRACK]; ACTIONS 47 [anon_sym_LPAREN];
   ACTIONS 49 [aux_sym__literalString_token1]; ACTIONS 51 [anon_sym_POUND];
   ACTIONS 53 [aux_sym__literalInt_token1]; ACTIONS 55 [aux_sym__literalInt_token2;
   aux_sym__literalInt_token3]; ACTIONS 53 [aux_sym__literalFloat_token1];
   ACTIONS 11 [aux_sym_ppUsesBlock_token1]; ACTIONS 211 [aux_sym_ppUsesBlock_token2;
   aux_sym_ppUsesBlock_token3]; ACTIONS 61 [sym_kAdd; sym_kSub]; ACTIONS 63 [sym_kAt];
   ACTIONS 65 [sym_kTrue; sym_kFalse]; ACTIONS 3 [sym__space]; ACTIONS 5 [sym_ppDirective];
   ACTIONS 3 [sym_comment]; ACTIONS 65 [sym_ppFragmentExpr];
   ACTIONS 49 [sym__literalStringMultiline]; ACTIONS 67 [sym_identifier];
   ACTIONS 69 [sym_kDefault; sym_kNodefault; sym_kDispId]; ACTIONS 71 [sym_kGeneric];
   ACTIONS 73 [sym_kSpecialize]; ACTIONS 75 [sym_kOperator]; ACTIONS 69 [sym_kPublic;
   sym_kStatic; sym_kVirtual; sym_kAbstract; sym_kDynamic; sym_kOverride; sym_kOverload;
   sym_kReintroduce; sym_kStdcall; sym_kCdecl; sym_kCppdecl; sym_kPascal; sym_kRegister;
   sym_kMwpascal; sym_kMessage; sym_kDeprecated; sym_kExperimental; sym_kPlatform;
   sym_kUnimplemented; sym_kCvar; sym_kExport; sym_kFar; sym_kNear; sym_kSafecall;
   sym_kAssembler; sym_kNostackframe; sym_kInterrupt; sym_kNoreturn; sym_kIocheck; sym_kLocal;
   sym_kHardfloat; sym_kSoftfloat; sym_kMs_abi_default; sym_kMs_abi_cdecl; sym_kSaveregisters;
   sym_kSysv_abi_default; sym_kSysv_abi_cdecl; sym_kVectorcall; sym_kVarargs; sym_kWinapi;
   sym_kAlias]; ACTIONS 83 [sym_kAsm]; ACTIONS 85 [sym_kBegin]; ACTIONS 87 [sym_kCase];
   ACTIONS 89 [sym_kClass]; ACTIONS 91 [sym_kConst]; ACTIONS 93 [sym_kConstructor;
   sym_kDestructor]; ACTIONS 95 [sym_kExports]; ACTIONS 97 [sym_kFor];
   ACTIONS 99 [sym_kFunction]; ACTIONS 101 [sym_kGoto]; ACTIONS 103 [sym_kIf];
   ACTIONS 105 [sym_kInherited]; ACTIONS 107 [sym_kLabel]; ACTIONS 65 [sym_kNil];
   ACTIONS 63 [sym_kNot]; ACTIONS 99 [sym_kProcedure]; ACTIONS 109 [sym_kProperty];
   ACTIONS 111 [sym_kRaise]; ACTIONS 113 [sym_kRepeat]; ACTIONS 115 [sym_kResourcestring];
   ACTIONS 117 [sym_kString]; ACTIONS 119 [sym_kThreadvar]; ACTIONS 121 [sym_kTry];
   ACTIONS 123 [sym_kType]; ACTIONS 125 [sym_kUses]; ACTIONS 127 [sym_kVar];
   ACTIONS 129 [sym_kWhile]; ACTIONS 131 [sym_kWith]].

(** State 51. *)
Definition ts_parse_table_51 : parse_row :=
  [STATE 1310 [sym_if]; STATE 51 [sym_ifElse; sym_while; sym_repeat; sym_for; sym_foreach;
   sym_try; sym_case; sym_block; sym_asm; sym_with; sym_raise; sym_statement; sym_goto;
   sym__statement]; STATE 15141 [sym_assignment]; STATE 11829 [sym_varAssignDef];
   STATE 15141 [sym_varDef; sym_constDef]; STATE 8220 [sym__expr; sym_exprConditional];
   STATE 7765 [sym__ref; sym_lambda; sym_inherited; sym_exprDot; sym_exprDeref; sym_exprAs;
   sym_exprTpl; sym_exprSubscript; sym_exprCall]; STATE 8220 [sym_exprBinary; sym_exprUnary];
   STATE 7765 [sym_exprParens; sym_exprBrackets]; STATE 12283 [sym_genericDot; sym_genericTpl;
   sym__genericName]; STATE 7765 [sym__literal; sym_literalString];
   STATE 6994 [sym__literalString; sym_literalChar]; STATE 7765 [sym_literalNumber];
   STATE 7888 [sym__literalInt; sym__literalFloat]; STATE 51 [sym_defProc; sym_declProcFwd;
   sym_declUses]; STATE 12 [sym__ppIf]; STATE 51 [sym_ppBlock; sym_declExports; sym_declTypes;
   sym_declVars; sym_declConsts; sym_declType]; STATE 58 [sym_declProc]; STATE 51 [sym_declVar;
   sym_declConst; sym_declLabels; sym_declField; sym_declProp]; STATE 1009 [sym__declProc];
   STATE 1309 [sym__declOperator]; STATE 2759 [sym_rttiAttributes];
   STATE 13110 [aux_sym_genericArg_repeat1]; STATE 6994 [aux_sym_literalString_repeat1];
   STATE 51 [aux_sym_ppBlock_repeat1]; STATE 5428 [aux_sym_declVar_repeat1];
   STATE 2888 [aux_sym_rttiAttributes_repeat2]; ACTIONS 213 [anon_sym_SEMI];
   ACTIONS 216 [anon_sym_COMMA]; ACTIONS 219 [anon_sym_LBRACK]; ACTIONS 222 [anon_sym_LPAREN];
   ACTIONS 225 [aux_sym__literalString_token1]; ACTIONS 228 [anon_sym_POUND];
   ACTIONS 231 [aux_sym__literalInt_token1]; ACTIONS 234 [aux_sym__literalInt_token2;
   aux_sym__literalInt_token3]; ACTIONS 231 [aux_sym__literalFloat_token1];
   ACTIONS 237 [aux_sym_ppUsesBlock_token1]; ACTIONS 240 [aux_sym_ppUsesBlock_token2;
   aux_sym_ppUsesBlock_token3]; ACTIONS 242 [sym_kAdd; sym_kSub]; ACTIONS 245 [sym_kAt];
   ACTIONS 248 [sym_kTrue; sym_kFalse]; ACTIONS 3 [sym__space]; ACTIONS 5 [sym_ppDirective];
   ACTIONS 3 [sym_comment]; ACTIONS 248 [sym_ppFragmentExpr];
   ACTIONS 225 [sym__literalStringMultiline]; ACTIONS 251 [sym_identifier];
   ACTIONS 254 [sym_kDefault; sym_kNodefault; sym_kDispId]; ACTIONS 257 [sym_kGeneric];
   ACTIONS 260 [sym_kSpecialize]; ACTIONS 263 [sym_kOperator]; ACTIONS 254 [sym_kPublic;
   sym_kStatic; sym_kVirtual; sym_kAbstract; sym_kDynamic; sym_kOverride; sym_kOverload;
   sym_kReintroduce; sym_kStdcall; sym_kCdecl; sym_kCppdecl; sym_kPascal; sym_kRegister;
   sym_kMwpascal; sym_kMessage; sym_kDeprecated; sym_kExperimental; sym_kPlatform;
   sym_kUnimplemented; sym_kCvar; sym_kExport; sym_kFar; sym_kNear; sym_kSafecall;
   sym_kAssembler; sym_kNostackframe; sym_kInterrupt; sym_kNoreturn; sym_kIocheck; sym_kLocal;
   sym_kHardfloat; sym_kSoftfloat; sym_kMs_abi_default; sym_kMs_abi_cdecl; sym_kSaveregisters;
   sym_kSysv_abi_default; sym_kSysv_abi_cdecl; sym_kVectorcall; sym_kVarargs; sym_kWinapi;
   sym_kAlias]; ACTIONS 266 [sym_kAsm]; ACTIONS 269 [sym_kBegin]; ACTIONS 272 [sym_kCase];
   ACTIONS 275 [sym_kClass]; ACTIONS 278 [sym_kConst]; ACTIONS 281 [sym_kConstructor;
   sym_kDestructor]; ACTIONS 284 [sym_kExports]; ACTIONS 287 [sym_kFor];
   ACTIONS 290 [sym_kFunction]; ACTIONS 293 [sym_kGoto]; ACTIONS 296 [sym_kIf];
   ACTIONS 299 [sym_kInherited]; ACTIONS 302 [sym_kLabel]; ACTIONS 248 [sym_kNil];
   ACTIONS 245 [sym_kNot]; ACTIONS 290 [sym_kProcedure]; ACTIONS 305 [sym_kProperty];
   ACTIONS 308 [sym_kRaise]; ACTIONS 311 [sym_kRepeat]; ACTIONS 314 [sym_kResourcestring];
   ACTIONS 317 [sym_kString]; ACTIONS 320 [sym_kThreadvar]; ACTIONS 323 [sym_kTry];
   ACTIONS 326 [sym_kType]; ACTIONS 329 [sym_kUses]; ACTIONS 332 [sym_kVar];
   ACTIONS 335 [sym_kWhile]; ACTIONS 338 [sym_kWith]].

(** State 52. *)
Definition ts_parse_table_52 : parse_row :=
  [STATE 1310 [sym_if]; STATE 50 [sym_ifElse; sym_while; sym_repeat; sym_for; sym_foreach;
   sym_try; sym_case; sym_block; sym_asm; sym_with; sym_raise; sym_statement; sym_goto;
   sym__statement]; STATE 15141 [sym_assignment]; STATE 11829 [sym_varAssignDef];
   STATE 15141 [sym_varDef; sym_constDef]; STATE 8220 [sym__expr; sym_exprConditional];
   STATE 7765 [sym__ref; sym_lambda; sym_inherited; sym_exprDot; sym_exprDeref; sym_exprAs;
   sym_exprTpl; sym_exprSubscript; sym_exprCall]; STATE 8220 [sym_exprBinary; sym_exprUnary];
   STATE 7765 [sym_exprParens; sym_exprBrackets]; STATE 12283 [sym_genericDot; sym_genericTpl;
   sym__genericName]; STATE 7765 [sym__literal; sym_literalString];
   STATE 6994 [sym__literalString; sym_literalChar]; STATE 7765 [sym_literalNumber];
   STATE 7888 [sym__literalInt; sym__literalFloat]; STATE 50 [sym_defProc; sym_declProcFwd;
   sym_declUses]; STATE 12 [sym__ppIf]; STATE 50 [sym_ppBlock; sym_declExports; sym_declTypes;
   sym_declVars; sym_declConsts; sym_declType]; STATE 58 [sym_declProc]; STATE 50 [sym_declVar;
   sym_declConst; sym_declLabels; sym_declField; sym_declProp]; STATE 1009 [sym__declProc];
   STATE 1309 [sym__declOperator]; STATE 2759 [sym_rttiAttributes];
   STATE 13110 [aux_sym_genericArg_repeat1]; STATE 6994 [aux_sym_literalString_repeat1];
   STATE 50 [aux_sym_ppBlock_repeat1]; STATE 5428 [aux_sym_declVar_repeat1];
   STATE 2888 [aux_sym_rttiAttributes_repeat2]; ACTIONS 41 [anon_sym_SEMI];
   ACTIONS 341 [anon_sym_COMMA]; ACTIONS 45 [anon_sym_LBRACK]; ACTIONS 47 [anon_sym_LPAREN];
   ACTIONS 49 [aux_sym__literalString_token1]; ACTIONS 51 [anon_sym_POUND];
   ACTIONS 53 [aux_sym__literalInt_token1]; ACTIONS 55 [aux_sym__literalInt_token2;
   aux_sym__literalInt_token3]; ACTIONS 53 [aux_sym__literalFloat_token1];
   ACTIONS 11 [aux_sym_ppUsesBlock_token1]; ACTIONS 343 [aux_sym_ppUsesBlock_token2;
   aux_sym_ppUsesBlock_token3]; ACTIONS 61 [sym_kAdd; sym_kSub]; ACTIONS 63 [sym_kAt];
   ACTIONS 65 [sym_kTrue; sym_kFalse]; ACTIONS 3 [sym__space]; ACTIONS 5 [sym_ppDirective];
   ACTIONS 3 [sym_comment]; ACTIONS 65 [sym_ppFragmentExpr];
   ACTIONS 49 [sym__literalStringMultiline]; ACTIONS 67 [sym_identifier];
   ACTIONS 69 [sym_kDefault; sym_kNodefault; sym_kDispId]; ACTIONS 71 [sym_kGeneric];
   ACTIONS 73 [sym_kSpecialize]; ACTIONS 75 [sym_kOperator]; ACTIONS 69 [sym_kPublic;
   sym_kStatic; sym_kVirtual; sym_kAbstract; sym_kDynamic; sym_kOverride; sym_kOverload;
   sym_kReintroduce; sym_kStdcall; sym_kCdecl; sym_kCppdecl; sym_kPascal; sym_kRegister;
   sym_kMwpascal; sym_kMessage; sym_kDeprecated; sym_kExperimental; sym_kPlatform;
   sym_kUnimplemented; sym_kCvar; sym_kExport; sym_kFar; sym_kNear; sym_kSafecall;
   sym_kAssembler; sym_kNostackframe; sym_kInterrupt; sym_kNoreturn; sym_kIocheck; sym_kLocal;
   sym_kHardfloat; sym_kSoftfloat; sym_kMs_abi_default; sym_kMs_abi_cdecl; sym_kSaveregisters;
   sym_kSysv_abi_default; sym_kSysv_abi_cdecl; sym_kVectorcall; sym_kVarargs; sym_kWinapi;
   sym_kAlias]; ACTIONS 83 [sym_kAsm]; ACTIONS 85 [sym_kBegin]; ACTIONS 87 [sym_kCase];
   ACTIONS 89 [sym_kClass]; ACTIONS 91 [sym_kConst]; ACTIONS 93 [sym_kConstructor;
   sym_kDestructor]; ACTIONS 95 [sym_kExports]; ACTIONS 97 [sym_kFor];
   ACTIONS 99 [sym_kFunction]; ACTIONS 101 [sym_kGoto]; ACTIONS 103 [sym_kIf];
   ACTIONS 105 [sym_kInherited]; ACTIONS 107 [sym_kLabel]; ACTIONS 65 [sym_kNil];
   ACTIONS 63 [sym_kNot]; ACTIONS 99 [sym_kProcedure]; ACTIONS 109 [sym_kProperty];
   ACTIONS 111 [sym_kRaise]; ACTIONS 113 [sym_kRepeat]; ACTIONS 115 [sym_kResourcestring];
   ACTIONS 117 [sym_kString]; ACTIONS 119 [sym_kThreadvar]; ACTIONS 121 [sym_kTry];
   ACTIONS 123 [sym_kType]; ACTIONS 125 [sym_kUses]; ACTIONS 127 [sym_kVar];
   ACTIONS 129 [sym_kWhile]; ACTIONS 131 [sym_kWith]].

(** State 53. *)
Definition ts_parse_table_53 : parse_row :=
  [STATE 10392 [sym_blockTr]; STATE 15019 [sym_asmTr]; STATE 6504 [aux_sym__definitions;
   sym__definition; sym_defProc]; STATE 1348 [sym__defProcImpl]; STATE 1351 [sym__defProcBody];
   STATE 6504 [sym_declProcFwd; sym_declUses]; STATE 6 [sym__ppIf]; STATE 10592 [sym__ppElse];
   STATE 6358 [sym__ppEndIf]; STATE 6504 [sym_ppBlock; sym_declExports; sym_declTypes;
   sym_declVars; sym_declConsts]; STATE 6432 [sym_declProc]; STATE 6504 [sym_declLabels];
   STATE 10355 [sym__declProc]; STATE 10443 [sym__declOperator];
   STATE 11110 [sym_rttiAttributes]; STATE 11886 [aux_sym_defProc_repeat1];
   STATE 11216 [aux_sym_rttiAttributes_repeat2]; ACTIONS 345 [anon_sym_SEMI; anon_sym_COMMA];
   ACTIONS 347 [anon_sym_LBRACK]; ACTIONS 350 [anon_sym_LPAREN];
   ACTIONS 345 [aux_sym__literalString_token1; anon_sym_POUND];
   ACTIONS 350 [aux_sym__literalInt_token1]; ACTIONS 345 [aux_sym__literalInt_token2;
   aux_sym__literalInt_token3]; ACTIONS 350 [aux_sym__literalFloat_token1];
   ACTIONS 352 [aux_sym_ppUsesBlock_token1]; ACTIONS 355 [aux_sym_ppUsesBlock_token2];
   ACTIONS 358 [aux_sym_ppUsesBlock_token3]; ACTIONS 350 [sym_kAdd; sym_kSub];
   ACTIONS 345 [sym_kAt; sym_kTrue; sym_kFalse]; ACTIONS 3 [sym__space];
   ACTIONS 5 [sym_ppDirective]; ACTIONS 3 [sym_comment]; ACTIONS 345 [sym_ppFragmentExpr;
   sym__literalStringMultiline; sym_identifier; sym_kDefault; sym_kNodefault; sym_kDispId];
   ACTIONS 361 [sym_kGeneric]; ACTIONS 345 [sym_kSpecialize]; ACTIONS 364 [sym_kOperator];
   ACTIONS 345 [sym_kPublic; sym_kStatic; sym_kVirtual; sym_kAbstract; sym_kDynamic;
   sym_kOverride; sym_kOverload; sym_kReintroduce; sym_kStdcall; sym_kCdecl; sym_kCppdecl;
   sym_kPascal; sym_kRegister; sym_kMwpascal; sym_kMessage; sym_kDeprecated; sym_kExperimental;
   sym_kPlatform; sym_kUnimplemented; sym_kCvar; sym_kExport; sym_kFar; sym_kNear; sym_kSafecall;
   sym_kAssembler; sym_kNostackframe; sym_kInterrupt; sym_kNoreturn; sym_kIocheck; sym_kLocal;
   sym_kHardfloat; sym_kSoftfloat; sym_kMs_abi_default; sym_kMs_abi_cdecl; sym_kSaveregisters;
   sym_kSysv_abi_default; sym_kSysv_abi_cdecl; sym_kVectorcall; sym_kVarargs; sym_kWinapi;
   sym_kAlias]; ACTIONS 367 [sym_kAsm]; ACTIONS 370 [sym_kBegin]; ACTIONS 345 [sym_kCase];
   ACTIONS 373 [sym_kClass]; ACTIONS 376 [sym_kConst]; ACTIONS 379 [sym_kConstructor;
   sym_kDestructor]; ACTIONS 382 [sym_kExports]; ACTIONS 345 [sym_kFor];
   ACTIONS 379 [sym_kFunction]; ACTIONS 345 [sym_kGoto; sym_kIf; sym_kInherited];
   ACTIONS 385 [sym_kLabel]; ACTIONS 345 [sym_kNil; sym_kNot]; ACTIONS 379 [sym_kProcedure];
   ACTIONS 345 [sym_kProperty; sym_kRaise; sym_kRepeat]; ACTIONS 376 [sym_kResourcestring];
   ACTIONS 345 [sym_kString]; ACTIONS 388 [sym_kThreadvar]; ACTIONS 345 [sym_kTry];
   ACTIONS 391 [sym_kType]; ACTIONS 394 [sym_kUses]; ACTIONS 388 [sym_kVar];
   ACTIONS 345 [sym_kWhile; sym_kWith]].

(** State 54. *)
Definition ts_parse_table_54 : parse_row :=
  [STATE 10392 [sym_blockTr]; STATE 15019 [sym_asmTr]; STATE 6504 [aux_sym__definitions;
   sym__definition; sym_defProc]; STATE 1348 [sym__defProcImpl]; STATE 1351 [sym__defProcBody];
   STATE 6504 [sym_declProcFwd; sym_declUses]; STATE 6 [sym__ppIf]; STATE 10592 [sym__ppElse];
   STATE 6399 [sym__ppEndIf]; STATE 6504 [sym_ppBlock; sym_declExports; sym_declTypes;
   sym_declVars; sym_declConsts]; STATE 6432 [sym_declProc]; STATE 6504 [sym_declLabels];
   STATE 10355 [sym__declProc]; STATE 10443 [sym__declOperator];
   STATE 11110 [sym_rttiAttributes]; STATE 11863 [aux_sym_defProc_repeat1];
   STATE 11216 [aux_sym_rttiAttributes_repeat2]; ACTIONS 345 [anon_sym_SEMI; anon_sym_COMMA];
   ACTIONS 347 [anon_sym_LBRACK]; ACTIONS 350 [anon_sym_LPAREN];
   ACTIONS 345 [aux_sym__literalString_token1; anon_sym_POUND];
   ACTIONS 350 [aux_sym__literalInt_token1]; ACTIONS 345 [aux_sym__literalInt_token2;
   aux_sym__literalInt_token3]; ACTIONS 350 [aux_sym__literalFloat_token1];
   ACTIONS 352 [aux_sym_ppUsesBlock_token1]; ACTIONS 355 [aux_sym_ppUsesBlock_token2];
   ACTIONS 358 [aux_sym_ppUsesBlock_token3]; ACTIONS 350 [sym_kAdd; sym_kSub];
   ACTIONS 345 [sym_kAt; sym_kTrue; sym_kFalse]; ACTIONS 3 [sym__space];
   ACTIONS 5 [sym_ppDirective]; ACTIONS 3 [sym_comment]; ACTIONS 345 [sym_ppFragmentExpr;
   sym__literalStringMultiline; sym_identifier; sym_kDefault; sym_kNodefault; sym_kDispId];
   ACTIONS 361 [sym_kGeneric]; ACTIONS 345 [sym_kSpecialize]; ACTIONS 364 [sym_kOperator];
   ACTIONS 345 [sym_kPublic; sym_kStatic; sym_kVirtual; sym_kAbstract; sym_kDynamic;
   sym_kOverride; sym_kOverload; sym_kReintroduce; sym_kStdcall; sym_kCdecl; sym_kCppdecl;
   sym_kPascal; sym_kRegister; sym_kMwpascal; sym_kMessage; sym_kDeprecated; sym_kExperimental;
   sym_kPlatform; sym_kUnimplemented; sym_kCvar; sym_kExport; sym_kFar; sym_kNear; sym_kSafecall;
   sym_kAssembler; sym_kNostackframe; sym_kInterrupt; sym_kNoreturn; sym_kIocheck; sym_kLocal;
   sym_kHardfloat; sym_kSoftfloat; sym_kMs_abi_default; sym_kMs_abi_cdecl; sym_kSaveregisters;
   sym_kSysv_abi_default; sym_kSysv_abi_cdecl; sym_kVectorcall; sym_kVarargs; sym_kWinapi;
   sym_kAlias]; ACTIONS 367 [sym_kAsm]; ACTIONS 370 [sym_kBegin]; ACTIONS 345 [sym_kCase];
   ACTIONS 373 [sym_kClass]; ACTIONS 376 [sym_kConst]; ACTIONS 379 [sym_kConstructor;
   sym_kDestructor]; ACTIONS 382 [sym_kExports]; ACTIONS 345 [sym_kFor];
   ACTIONS 379 [sym_kFunction]; ACTIONS 345 [sym_kGoto; sym_kIf; sym_kInherited];
   ACTIONS 385 [sym_kLabel]; ACTIONS 345 [sym_kNil; sym_kNot]; ACTIONS 379 [sym_kProcedure];
   ACTIONS 345 [sym_kProperty; sym_kRaise; sym_kRepeat]; ACTIONS 376 [sym_kResourcestring];
   ACTIONS 345 [sym_kString]; ACTIONS 388 [sym_kThreadvar]; ACTIONS 345 [sym_kTry];
   ACTIONS 391 [sym_kType]; ACTIONS 394 [sym_kUses]; ACTIONS 388 [sym_kVar];
   ACTIONS 345 [sym_kWhile; sym_kWith]].

(** State 55. *)
Definition ts_parse_table_55 : parse_row :=
  [STATE 10392 [sym_blockTr]; STATE 15019 [sym_asmTr]; STATE 6504 [aux_sym__definitions;
   sym__definition; sym_defProc]; STATE 1348 [sym__defProcImpl]; STATE 1351 [sym__defProcBody];
   STATE 6504 [sym_declProcFwd; sym_declUses]; STATE 6 [sym__ppIf]; STATE 10592 [sym__ppElse];
   STATE 6377 [sym__ppEndIf]; STATE 6504 [sym_ppBlock; sym_declExports; sym_declTypes;
   sym_declVars; sym_declConsts]; STATE 6432 [sym_declProc]; STATE 6504 [sym_declLabels];
   STATE 10355 [sym__declProc]; STATE 10443 [sym__declOperator];
   STATE 11110 [sym_rttiAttributes]; STATE 11836 [aux_sym_defProc_repeat1];
   STATE 11216 [aux_sym_rttiAttributes_repeat2]; ACTIONS 345 [anon_sym_SEMI; anon_sym_COMMA];
   ACTIONS 347 [anon_sym_LBRACK]; ACTIONS 350 [anon_sym_LPAREN];
   ACTIONS 345 [aux_sym__literalString_token1; anon_sym_POUND];
   ACTIONS 350 [aux_sym__literalInt_token1]; ACTIONS 345 [aux_sym__literalInt_token2;
   aux_sym__literalInt_token3]; ACTIONS 350 [aux_sym__literalFloat_token1];
   ACTIONS 352 [aux_sym_ppUsesBlock_token1]; ACTIONS 355 [aux_sym_ppUsesBlock_token2];
   ACTIONS 358 [aux_sym_ppUsesBlock_token3]; ACTIONS 350 [sym_kAdd; sym_kSub];
   ACTIONS 345 [sym_kAt; sym_kTrue; sym_kFalse]; ACTIONS 3 [sym__space];
   ACTIONS 5 [sym_ppDirective]; ACTIONS 3 [sym_comment]; ACTIONS 345 [sym_ppFragmentExpr;
   sym__literalStringMultiline; sym_identifier; sym_kDefault; sym_kNodefault; sym_kDispId];
   ACTIONS 361 [sym_kGeneric]; ACTIONS 345 [sym_kSpecialize]; ACTIONS 364 [sym_kOperator];
   ACTIONS 345 [sym_kPublic; sym_kStatic; sym_kVirtual; sym_kAbstract; sym_kDynamic;
   sym_kOverride; sym_kOverload; sym_kReintroduce; sym_kStdcall; sym_kCdecl; sym_kCppdecl;
   sym_kPascal; sym_kRegister; sym_kMwpascal; sym_kMessage; sym_kDeprecated; sym_kExperimental;
   sym_kPlatform; sym_kUnimplemented; sym_kCvar; sym_kExport; sym_kFar; sym_kNear; sym_kSafecall;
   sym_kAssembler; sym_kNostackframe; sym_kInterrupt; sym_kNoreturn; sym_kIocheck; sym_kLocal;
   sym_kHardfloat; sym_kSoftfloat; sym_kMs_abi_default; sym_kMs_abi_cdecl; sym_kSaveregisters;
   sym_kSysv_abi_default; sym_kSysv_abi_cdecl; sym_kVectorcall; sym_kVarargs; sym_kWinapi;
   sym_kAlias]; ACTIONS 367 [sym_kAsm]; ACTIONS 370 [sym_kBegin]; ACTIONS 345 [sym_kCase];
   ACTIONS 373 [sym_kClass]; ACTIONS 376 [sym_kConst]; ACTIONS 379 [sym_kConstructor;
   sym_kDestructor]; ACTIONS 382 [sym_kExports]; ACTIONS 345 [sym_kFor];
   ACTIONS 379 [sym_kFunction]; ACTIONS 345 [sym_kGoto; sym_kIf; sym_kInherited];
   ACTIONS 385 [sym_kLabel]; ACTIONS 345 [sym_kNil; sym_kNot]; ACTIONS 379 [sym_kProcedure];
   ACTIONS 345 [sym_kProperty; sym_kRaise; sym_kRepeat]; ACTIONS 376 [sym_kResourcestring];
   ACTIONS 345 [sym_kString]; ACTIONS 388 [sym_kThreadvar]; ACTIONS 345 [sym_kTry];
   ACTIONS 391 [sym_kType]; ACTIONS 394 [sym_kUses]; ACTIONS 388 [sym_kVar];
   ACTIONS 345 [sym_kWhile; sym_kWith]].

(** State 56. *)
Definition ts_parse_table_56 : parse_row :=
  [STATE 10392 [sym_blockTr]; STATE 15019 [sym_asmTr]; STATE 6504 [aux_sym__definitions;
   sym__definition; sym_defProc]; STATE 1348 [sym__defProcImpl]; STATE 1351 [sym__defProcBody];
   STATE 6504 [sym_declProcFwd; sym_declUses]; STATE 6 [sym__ppIf]; STATE 10592 [sym__ppElse];
   STATE 6359 [sym__ppEndIf]; STATE 6504 [sym_ppBlock; sym_declExports; sym_declTypes;
   sym_declVars; sym_declConsts]; STATE 6432 [sym_declProc]; STATE 6504 [sym_declLabels];
   STATE 10355 [sym__declProc]; STATE 10443 [sym__declOperator];
   STATE 11110 [sym_rttiAttributes]; STATE 11862 [aux_sym_defProc_repeat1];
   STATE 11216 [aux_sym_rttiAttributes_repeat2]; ACTIONS 345 [anon_sym_SEMI; anon_sym_COMMA];
   ACTIONS 347 [anon_sym_LBRACK]; ACTIONS 350 [anon_sym_LPAREN];
   ACTIONS 345 [aux_sym__literalString_token1; anon_sym_POUND];
   ACTIONS 350 [aux_sym__literalInt_token1]; ACTIONS 345 [aux_sym__literalInt_token2;
   aux_sym__literalInt_token3]; ACTIONS 350 [aux_sym__literalFloat_token1];
   ACTIONS 352 [aux_sym_ppUsesBlock_token1]; ACTIONS 355 [aux_sym_ppUsesBlock_token2];
   ACTIONS 358 [aux_sym_ppUsesBlock_token3]; ACTIONS 350 [sym_kAdd; sym_kSub];
   ACTIONS 345 [sym_kAt; sym_kTrue; sym_kFalse]; ACTIONS 3 [sym__space];
   ACTIONS 5 [sym_ppDirective]; ACTIONS 3 [sym_comment]; ACTIONS 345 [sym_ppFragmentExpr;
   sym__literalStringMultiline; sym_identifier; sym_kDefault; sym_kNodefault; sym_kDispId];
   ACTIONS 361 [sym_kGeneric]; ACTIONS 345 [sym_kSpecialize]; ACTIONS 364 [sym_kOperator];
   ACTIONS 345 [sym_kPublic; sym_kStatic; sym_kVirtual; sym_kAbstract; sym_kDynamic;
   sym_kOverride; sym_kOverload; sym_kReintroduce; sym_kStdcall; sym_kCdecl; sym_kCppdecl;
   sym_kPascal; sym_kRegister; sym_kMwpascal; sym_kMessage; sym_kDeprecated; sym_kExperimental;
   sym_kPlatform; sym_kUnimplemented; sym_kCvar; sym_kExport; sym_kFar; sym_kNear; sym_kSafecall;
   sym_kAssembler; sym_kNostackframe; sym_kInterrupt; sym_kNoreturn; sym_kIocheck; sym_kLocal;
   sym_kHardfloat; sym_kSoftfloat; sym_kMs_abi_default; sym_kMs_abi_cdecl; sym_kSaveregisters;
   sym_kSysv_abi_default; sym_kSysv_abi_cdecl; sym_kVectorcall; sym_kVarargs; sym_kWinapi;
   sym_kAlias]; ACTIONS 367 [sym_kAsm]; ACTIONS 370 [sym_kBegin]; ACTIONS 345 [sym_kCase];
   ACTIONS 373 [sym_kClass]; ACTIONS 376 [sym_kConst]; ACTIONS 379 [sym_kConstructor;
   sym_kDestructor]; ACTIONS 382 [sym_kExports]; ACTIONS 345 [sym_kFor];
   ACTIONS 379 [sym_kFunction]; ACTIONS 345 [sym_kGoto; sym_kIf; sym_kInherited];
   ACTIONS 385 [sym_kLabel]; ACTIONS 345 [sym_kNil; sym_kNot]; ACTIONS 379 [sym_kProcedure];
   ACTIONS 345 [sym_kProperty; sym_kRaise; sym_kRepeat]; ACTIONS 376 [sym_kResourcestring];
   ACTIONS 345 [sym_kString]; ACTIONS 388 [sym_kThreadvar]; ACTIONS 345 [sym_kTry];
   ACTIONS 391 [sym_kType]; ACTIONS 394 [sym_kUses]; ACTIONS 388 [sym_kVar];
   ACTIONS 345 [sym_kWhile; sym_kWith]].

(** State 57. *)
Definition ts_parse_table_57 : parse_row :=
  [STATE 10392 [sym_blockTr]; STATE 15019 [sym_asmTr]; STATE 6504 [aux_sym__definitions;
   sym__definition; sym_defProc]; STATE 1348 [sym__defProcImpl]; STATE 1351 [sym__defProcBody];
   STATE 6504 [sym_declProcFwd; sym_declUses]; STATE 6 [sym__ppIf]; STATE 10592 [sym__ppElse];
   STATE 6363 [sym__ppEndIf]; STATE 6504 [sym_ppBlock; sym_declExports; sym_declTypes;
   sym_declVars; sym_declConsts]; STATE 6432 [sym_declProc]; STATE 6504 [sym_declLabels];
   STATE 10355 [sym__declProc]; STATE 10443 [sym__declOperator];
   STATE 11110 [sym_rttiAttributes]; STATE 11874 [aux_sym_defProc_repeat1];
   STATE 11216 [aux_sym_rttiAttributes_repeat2]; ACTIONS 345 [anon_sym_SEMI; anon_sym_COMMA];
   ACTIONS 347 [anon_sym_LBRACK]; ACTIONS 350 [anon_sym_LPAREN];
   ACTIONS 345 [aux_sym__literalString_token1; anon_sym_POUND];
   ACTIONS 350 [aux_sym__literalInt_token1]; ACTIONS 345 [aux_sym__literalInt_token2;
   aux_sym__literalInt_token3]; ACTIONS 350 [aux_sym__literalFloat_token1];
   ACTIONS 352 [aux_sym_ppUsesBlock_token1]; ACTIONS 355 [aux_sym_ppUsesBlock_token2];
   ACTIONS 358 [aux_sym_ppUsesBlock_token3]; ACTIONS 350 [sym_kAdd; sym_kSub];
   ACTIONS 345 [sym_kAt; sym_kTrue; sym_kFalse]; ACTIONS 3 [sym__space];
   ACTIONS 5 [sym_ppDirective]; ACTIONS 3 [sym_comment]; ACTIONS 345 [sym_ppFragmentExpr;
   sym__literalStringMultiline; sym_identifier; sym_kDefault; sym_kNodefault; sym_kDispId];
   ACTIONS 361 [sym_kGeneric]; ACTIONS 345 [sym_kSpecialize]; ACTIONS 364 [sym_kOperator];
   ACTIONS 345 [sym_kPublic; sym_kStatic; sym_kVirtual; sym_kAbstract; sym_kDynamic;
   sym_kOverride; sym_kOverload; sym_kReintroduce; sym_kStdcall; sym_kCdecl; sym_kCppdecl;
   sym_kPascal; sym_kRegister; sym_kMwpascal; sym_kMessage; sym_kDeprecated; sym_kExperimental;
   sym_kPlatform; sym_kUnimplemented; sym_kCvar; sym_kExport; sym_kFar; sym_kNear; sym_kSafecall;
   sym_kAssembler; sym_kNostackframe; sym_kInterrupt; sym_kNoreturn; sym_kIocheck; sym_kLocal;
   sym_kHardfloat; sym_kSoftfloat; sym_kMs_abi_default; sym_kMs_abi_cdecl; sym_kSaveregisters;
   sym_kSysv_abi_default; sym_kSysv_abi_cdecl; sym_kVectorcall; sym_kVarargs; sym_kWinapi;
   sym_kAlias]; ACTIONS 367 [sym_kAsm]; ACTIONS 370 [sym_kBegin]; ACTIONS 345 [sym_kCase];
   ACTIONS 373 [sym_kClass]; ACTIONS 376 [sym_kConst]; ACTIONS 379 [sym_kConstructor;
   sym_kDestructor]; ACTIONS 382 [sym_kExports]; ACTIONS 345 [sym_kFor];
   ACTIONS 379 [sym_kFunction]; ACTIONS 345 [sym_kGoto; sym_kIf; sym_kInherited];
   ACTIONS 385 [sym_kLabel]; ACTIONS 345 [sym_kNil; sym_kNot]; ACTIONS 379 [sym_kProcedure];
   ACTIONS 345 [sym_kProperty; sym_kRaise; sym_kRepeat]; ACTIONS 376 [sym_kResourcestring];
   ACTIONS 345 [sym_kString]; ACTIONS 388 [sym_kThreadvar]; ACTIONS 345 [sym_kTry];
   ACTIONS 391 [sym_kType]; ACTIONS 394 [sym_kUses]; ACTIONS 388 [sym_kVar];
   ACTIONS 345 [sym_kWhile; sym_kWith]].

(** State 58. *)
Definition ts_parse_table_58 : parse_row :=
  [STATE 10392 [sym_blockTr]; STATE 15019 [sym_asmTr]; STATE 6504 [aux_sym__definitions;
   sym__definition; sym_defProc]; STATE 1348 [sym__defProcImpl]; STATE 1351 [sym__defProcBody];
   STATE 6504 [sym_declProcFwd; sym_declUses]; STATE 6 [sym__ppIf]; STATE 6504 [sym_ppBlock;
   sym_declExports; sym_declTypes; sym_declVars; sym_declConsts]; STATE 6432 [sym_declProc];
   STATE 6504 [sym_declLabels]; STATE 10355 [sym__declProc]; STATE 10443 [sym__declOperator];
   STATE 11110 [sym_rttiAttributes]; STATE 11216 [aux_sym_rttiAttributes_repeat2];
   ACTIONS 345 [anon_sym_SEMI; anon_sym_COMMA]; ACTIONS 347 [anon_sym_LBRACK];
   ACTIONS 350 [anon_sym_LPAREN]; ACTIONS 345 [aux_sym__literalString_token1; anon_sym_POUND];
   ACTIONS 350 [aux_sym__literalInt_token1]; ACTIONS 345 [aux_sym__literalInt_token2;
   aux_sym__literalInt_token3]; ACTIONS 350 [aux_sym__literalFloat_token1];
   ACTIONS 352 [aux_sym_ppUsesBlock_token1]; ACTIONS 345 [aux_sym_ppUsesBlock_token2;
   aux_sym_ppUsesBlock_token3]; ACTIONS 350 [sym_kAdd; sym_kSub]; ACTIONS 345 [sym_kAt;
   sym_kTrue; sym_kFalse]; ACTIONS 3 [sym__space]; ACTIONS 5 [sym_ppDirective];
   ACTIONS 3 [sym_comment]; ACTIONS 345 [sym_ppFragmentExpr; sym__literalStringMultiline;
   sym_identifier; sym_kDefault; sym_kNodefault; sym_kDispId]; ACTIONS 361 [sym_kGeneric];
   ACTIONS 345 [sym_kSpecialize]; ACTIONS 364 [sym_kOperator]; ACTIONS 345 [sym_kPublic;
   sym_kStatic; sym_kVirtual; sym_kAbstract; sym_kDynamic; sym_kOverride; sym_kOverload;
   sym_kReintroduce; sym_kStdcall; sym_kCdecl; sym_kCppdecl; sym_kPascal; sym_kRegister;
   sym_kMwpascal; sym_kMessage; sym_kDeprecated; sym_kExperimental; sym_kPlatform;
   sym_kUnimplemented; sym_kCvar; sym_kExport; sym_kFar; sym_kNear; sym_kSafecall;
   sym_kAssembler; sym_kNostackframe; sym_kInterrupt; sym_kNoreturn; sym_kIocheck; sym_kLocal;
   sym_kHardfloat; sym_kSoftfloat; sym_kMs_abi_default; sym_kMs_abi_cdecl; sym_kSaveregisters;
   sym_kSysv_abi_default; sym_kSysv_abi_cdecl; sym_kVectorcall; sym_kVarargs; sym_kWinapi;
   sym_kAlias]; ACTIONS 367 [sym_kAsm]; ACTIONS 370 [sym_kBegin]; ACTIONS 345 [sym_kCase];
   ACTIONS 373 [sym_kClass]; ACTIONS 376 [sym_kConst]; ACTIONS 379 [sym_kConstructor;
   sym_kDestructor]; ACTIONS 382 [sym_kExports]; ACTIONS 345 [sym_kFor];
   ACTIONS 379 [sym_kFunction]; ACTIONS 345 [sym_kGoto; sym_kIf; sym_kInherited];
   ACTIONS 385 [sym_kLabel]; ACTIONS 345 [sym_kNil; sym_kNot]; ACTIONS 379 [sym_kProcedure];
   ACTIONS 345 [sym_kProperty; sym_kRaise; sym_kRepeat]; ACTIONS 376 [sym_kResourcestring];
   ACTIONS 345 [sym_kString]; ACTIONS 388 [sym_kThreadvar]; ACTIONS 345 [sym_kTry];
   ACTIONS 391 [sym_kType]; ACTIONS 394 [sym_kUses]; ACTIONS 388 [sym_kVar];
   ACTIONS 345 [sym_kWhile; sym_kWith]].

(** State 59. *)
Definition ts_parse_table_59 : parse_row :=
  [STATE 6213 [sym_if]; STATE 6327 [sym_ifElse; sym_while; sym_repeat; sym_for; sym_foreach];
   STATE 12104 [sym_exceptionHandler]; STATE 6327 [sym_try; sym_case; sym_block; sym_asm;
   sym_with; sym_raise; sym_statement; sym_goto; sym__statement]; STATE 15991 [sym_ifTr;
   sym_ifElseTr; sym_whileTr; sym_repeatTr; sym_forTr; sym_foreachTr];
   STATE 12526 [sym_exceptionHandlerTr]; STATE 15027 [sym__exceptionHandlersTr];
   STATE 15991 [sym_tryTr; sym_caseTr]; STATE 14251 [sym_blockTr]; STATE 15991 [sym_asmTr;
   sym_withTr; sym_raiseTr; sym_statementTr; sym_gotoTr; sym__statementTr];
   STATE 13915 [sym_assignment]; STATE 11785 [sym_varAssignDef]; STATE 13915 [sym_varDef;
   sym_constDef]; STATE 6166 [sym_label]; STATE 15991 [sym__statementsTr];
   STATE 15027 [sym_statementsTr]; STATE 8019 [sym__expr; sym_exprConditional];
   STATE 7478 [sym__ref; sym_lambda; sym_inherited; sym_exprDot; sym_exprDeref; sym_exprAs;
   sym_exprTpl; sym_exprSubscript; sym_exprCall]; STATE 8019 [sym_exprBinary; sym_exprUnary];
   STATE 7478 [sym_exprParens; sym_exprBrackets; sym__literal; sym_literalString];
   STATE 6664 [sym__literalString; sym_literalChar]; STATE 7478 [sym_literalNumber];
   STATE 7742 [sym__literalInt; sym__literalFloat]; STATE 1380 [sym__ppIf];
   STATE 6327 [sym__ppStatementBlock]; STATE 11840 [aux_sym_labeledStatement_repeat1];
   STATE 12159 [aux_sym__exceptionHandlersTr_repeat1]; STATE 863 [aux_sym__statementsTr_repeat1];
   STATE 6664 [aux_sym_literalString_repeat1]; ACTIONS 397 [anon_sym_SEMI];
   ACTIONS 399 [anon_sym_LBRACK]; ACTIONS 401 [anon_sym_LPAREN];
   ACTIONS 403 [aux_sym__literalString_token1]; ACTIONS 405 [anon_sym_POUND];
   ACTIONS 407 [aux_sym__literalInt_token1]; ACTIONS 409 [aux_sym__literalInt_token2;
   aux_sym__literalInt_token3]; ACTIONS 407 [aux_sym__literalFloat_token1];
   ACTIONS 411 [aux_sym_ppUsesBlock_token1]; ACTIONS 413 [sym_kAdd; sym_kSub];
   ACTIONS 415 [sym_kAt]; ACTIONS 417 [sym_kTrue; sym_kFalse]; ACTIONS 419 [sym_labelNumber];
   ACTIONS 3 [sym__space]; ACTIONS 5 [sym_ppDirective]; ACTIONS 3 [sym_comment];
   ACTIONS 417 [sym_ppFragmentExpr]; ACTIONS 397 [sym_ppFragmentStmt];
   ACTIONS 403 [sym__literalStringMultiline]; ACTIONS 421 [sym_identifier];
   ACTIONS 423 [sym_kSpecialize]; ACTIONS 425 [sym_kOn]; ACTIONS 427 [sym_kAsm];
   ACTIONS 429 [sym_kBegin]; ACTIONS 431 [sym_kCase]; ACTIONS 433 [sym_kConst];
   ACTIONS 435 [sym_kEnd]; ACTIONS 437 [sym_kFor]; ACTIONS 439 [sym_kFunction];
   ACTIONS 441 [sym_kGoto]; ACTIONS 443 [sym_kIf]; ACTIONS 445 [sym_kInherited];
   ACTIONS 417 [sym_kNil]; ACTIONS 415 [sym_kNot]; ACTIONS 439 [sym_kProcedure];
   ACTIONS 447 [sym_kRaise]; ACTIONS 449 [sym_kRepeat]; ACTIONS 451 [sym_kString];
   ACTIONS 453 [sym_kTry]; ACTIONS 455 [sym_kVar]; ACTIONS 457 [sym_kWhile];
   ACTIONS 459 [sym_kWith]].

(** State 60. *)
Definition ts_parse_table_60 : parse_row :=
  [STATE 6213 [sym_if]; STATE 6327 [sym_ifElse; sym_while; sym_repeat; sym_for; sym_foreach];
   STATE 12104 [sym_exceptionHandler]; STATE 6327 [sym_try; sym_case; sym_block; sym_asm;
   sym_with; sym_raise; sym_statement; sym_goto; sym__statement]; STATE 15991 [sym_ifTr;
   sym_ifElseTr; sym_whileTr; sym_repeatTr; sym_forTr; sym_foreachTr];
   STATE 12526 [sym_exceptionHandlerTr]; STATE 15750 [sym__exceptionHandlersTr];
   STATE 15991 [sym_tryTr; sym_caseTr]; STATE 14251 [sym_blockTr]; STATE 15991 [sym_asmTr;
   sym_withTr; sym_raiseTr; sym_statementTr; sym_gotoTr; sym__statementTr];
   STATE 13915 [sym_assignment]; STATE 11785 [sym_varAssignDef]; STATE 13915 [sym_varDef;
   sym_constDef]; STATE 6166 [sym_label]; STATE 15991 [sym__statementsTr];
   STATE 15750 [sym_statementsTr]; STATE 8019 [sym__expr; sym_exprConditional];
   STATE 7478 [sym__ref; sym_lambda; sym_inherited; sym_exprDot; sym_exprDeref; sym_exprAs;
   sym_exprTpl; sym_exprSubscript; sym_exprCall]; STATE 8019 [sym_exprBinary; sym_exprUnary];
   STATE 7478 [sym_exprParens; sym_exprBrackets; sym__literal; sym_literalString];
   STATE 6664 [sym__literalString; sym_literalChar]; STATE 7478 [sym_literalNumber];
   STATE 7742 [sym__literalInt; sym__literalFloat]; STATE 1380 [sym__ppIf];
   STATE 6327 [sym__ppStatementBlock]; STATE 11840 [aux_sym_labeledStatement_repeat1];
   STATE 12159 [aux_sym__exceptionHandlersTr_repeat1]; STATE 863 [aux_sym__statementsTr_repeat1];
   STATE 6664 [aux_sym_literalString_repeat1]; ACTIONS 397 [anon_sym_SEMI];
   ACTIONS 399 [anon_sym_LBRACK]; ACTIONS 401 [anon_sym_LPAREN];
   ACTIONS 403 [aux_sym__literalString_token1]; ACTIONS 405 [anon_sym_POUND];
   ACTIONS 407 [aux_sym__literalInt_token1]; ACTIONS 409 [aux_sym__literalInt_token2;
   aux_sym__literalInt_token3]; ACTIONS 407 [aux_sym__literalFloat_token1];
   ACTIONS 411 [aux_sym_ppUsesBlock_token1]; ACTIONS 413 [sym_kAdd; sym_kSub];
   ACTIONS 415 [sym_kAt]; ACTIONS 417 [sym_kTrue; sym_kFalse]; ACTIONS 419 [sym_labelNumber];
   ACTIONS 3 [sym__space]; ACTIONS 5 [sym_ppDirective]; ACTIONS 3 [sym_comment];
   ACTIONS 417 [sym_ppFragmentExpr]; ACTIONS 397 [sym_ppFragmentStmt];
   ACTIONS 403 [sym__literalStringMultiline]; ACTIONS 421 [sym_identifier];
   ACTIONS 423 [sym_kSpecialize]; ACTIONS 425 [sym_kOn]; ACTIONS 427 [sym_kAsm];
   ACTIONS 429 [sym_kBegin]; ACTIONS 431 [sym_kCase]; ACTIONS 433 [sym_kConst];
   ACTIONS 461 [sym_kEnd]; ACTIONS 437 [sym_kFor]; ACTIONS 439 [sym_kFunction];
   ACTIONS 441 [sym_kGoto]; ACTIONS 443 [sym_kIf]; ACTIONS 445 [sym_kInherited];
   ACTIONS 417 [sym_kNil]; ACTIONS 415 [sym_kNot]; ACTIONS 439 [sym_kProcedure];
   ACTIONS 447 [sym_kRaise]; ACTIONS 449 [sym_kRepeat]; ACTIONS 451 [sym_kString];
   ACTIONS 453 [sym_kTry]; ACTIONS 455 [sym_kVar]; ACTIONS 457 [sym_kWhile];
   ACTIONS 459 [sym_kWith]].

(** State 61. *)
Definition ts_parse_table_61 : parse_row :=
  [STATE 6213 [sym_if]; STATE 6327 [sym_ifElse; sym_while; sym_repeat; sym_for; sym_foreach];
   STATE 12104 [sym_exceptionHandler]; STATE 6327 [sym_try; sym_case; sym_block; sym_asm;
   sym_with; sym_raise; sym_statement; sym_goto; sym__statement]; STATE 15991 [sym_ifTr;
   sym_ifElseTr; sym_whileTr; sym_repeatTr; sym_forTr; sym_foreachTr];
   STATE 12526 [sym_exceptionHandlerTr]; STATE 15694 [sym__exceptionHandlersTr];
   STATE 15991 [sym_tryTr; sym_caseTr]; STATE 14251 [sym_blockTr]; STATE 15991 [sym_asmTr;
   sym_withTr; sym_raiseTr; sym_statementTr; sym_gotoTr; sym__statementTr];
   STATE 13915 [sym_assignment]; STATE 11785 [sym_varAssignDef]; STATE 13915 [sym_varDef;
   sym_constDef]; STATE 6166 [sym_label]; STATE 15991 [sym__statementsTr];
   STATE 15694 [sym_statementsTr]; STATE 8019 [sym__expr; sym_exprConditional];
   STATE 7478 [sym__ref; sym_lambda; sym_inherited; sym_exprDot; sym_exprDeref; sym_exprAs;
   sym_exprTpl; sym_exprSubscript; sym_exprCall]; STATE 8019 [sym_exprBinary; sym_exprUnary];
   STATE 7478 [sym_exprParens; sym_exprBrackets; sym__literal; sym_literalString];
   STATE 6664 [sym__literalString; sym_literalChar]; STATE 7478 [sym_literalNumber];
   STATE 7742 [sym__literalInt; sym__literalFloat]; STATE 1380 [sym__ppIf];
   STATE 6327 [sym__ppStatementBlock]; STATE 11840 [aux_sym_labeledStatement_repeat1];
   STATE 12159 [aux_sym__exceptionHandlersTr_repeat1]; STATE 863 [aux_sym__statementsTr_repeat1];
   STATE 6664 [aux_sym_literalString_repeat1]; ACTIONS 397 [anon_sym_SEMI];
   ACTIONS 399 [anon_sym_LBRACK]; ACTIONS 401 [anon_sym_LPAREN];
   ACTIONS 403 [aux_sym__literalString_token1]; ACTIONS 405 [anon_sym_POUND];
   ACTIONS 407 [aux_sym__literalInt_token1]; ACTIONS 409 [aux_sym__literalInt_token2;
   aux_sym__literalInt_token3]; ACTIONS 407 [aux_sym__literalFloat_token1];
   ACTIONS 411 [aux_sym_ppUsesBlock_token1]; ACTIONS 413 [sym_kAdd; sym_kSub];
   ACTIONS 415 [sym_kAt]; ACTIONS 417 [sym_kTrue; sym_kFalse]; ACTIONS 419 [sym_labelNumber];
   ACTIONS 3 [sym__space]; ACTIONS 5 [sym_ppDirective]; ACTIONS 3 [sym_comment];
   ACTIONS 417 [sym_ppFragmentExpr]; ACTIONS 397 [sym_ppFragmentStmt];
   ACTIONS 403 [sym__literalStringMultiline]; ACTIONS 421 [sym_identifier];
   ACTIONS 423 [sym_kSpecialize]; ACTIONS 425 [sym_kOn]; ACTIONS 427 [sym_kAsm];
   ACTIONS 429 [sym_kBegin]; ACTIONS 431 [sym_kCase]; ACTIONS 433 [sym_kConst];
   ACTIONS 463 [sym_kEnd]; ACTIONS 437 [sym_kFor]; ACTIONS 439 [sym_kFunction];
   ACTIONS 441 [sym_kGoto]; ACTIONS 443 [sym_kIf]; ACTIONS 445 [sym_kInherited];
   ACTIONS 417 [sym_kNil]; ACTIONS 415 [sym_kNot]; ACTIONS 439 [sym_kProcedure];
   ACTIONS 447 [sym_kRaise]; ACTIONS 449 [sym_kRepeat]; ACTIONS 451 [sym_kString];
   ACTIONS 453 [sym_kTry]; ACTIONS 455 [sym_kVar]; ACTIONS 457 [sym_kWhile];
   ACTIONS 459 [sym_kWith]].

(** State 62. *)
Definition ts_parse_table_62 : parse_row :=
  [STATE 6213 [sym_if]; STATE 6327 [sym_ifElse; sym_while; sym_repeat; sym_for; sym_foreach];
   STATE 12104 [sym_exceptionHandler]; STATE 6327 [sym_try; sym_case; sym_block; sym_asm;
   sym_with; sym_raise; sym_statement; sym_goto; sym__statement]; STATE 15991 [sym_ifTr;
   sym_ifElseTr; sym_whileTr; sym_repeatTr; sym_forTr; sym_foreachTr];
   STATE 12526 [sym_exceptionHandlerTr]; STATE 15948 [sym__exceptionHandlersTr];
   STATE 15991 [sym_tryTr; sym_caseTr]; STATE 14251 [sym_blockTr]; STATE 15991 [sym_asmTr;
   sym_withTr; sym_raiseTr; sym_statementTr; sym_gotoTr; sym__statementTr];
   STATE 13915 [sym_assignment]; STATE 11785 [sym_varAssignDef]; STATE 13915 [sym_varDef;
   sym_constDef]; STATE 6166 [sym_label]; STATE 15991 [sym__statementsTr];
   STATE 15948 [sym_statementsTr]; STATE 8019 [sym__expr; sym_exprConditional];
   STATE 7478 [sym__ref; sym_lambda; sym_inherited; sym_exprDot; sym_exprDeref; sym_exprAs;
   sym_exprTpl; sym_exprSubscript; sym_exprCall]; STATE 8019 [sym_exprBinary; sym_exprUnary];
   STATE 7478 [sym_exprParens; sym_exprBrackets; sym__literal; sym_literalString];
   STATE 6664 [sym__literalString; sym_literalChar]; STATE 7478 [sym_literalNumber];
   STATE 7742 [sym__literalInt; sym__literalFloat]; STATE 1380 [sym__ppIf];
   STATE 6327 [sym__ppStatementBlock]; STATE 11840 [aux_sym_labeledStatement_repeat1];
   STATE 12159 [aux_sym__exceptionHandlersTr_repeat1]; STATE 863 [aux_sym__statementsTr_repeat1];
   STATE 6664 [aux_sym_literalString_repeat1]; ACTIONS 397 [anon_sym_SEMI];
   ACTIONS 399 [anon_sym_LBRACK]; ACTIONS 401 [anon_sym_LPAREN];
   ACTIONS 403 [aux_sym__literalString_token1]; ACTIONS 405 [anon_sym_POUND];
   ACTIONS 407 [aux_sym__literalInt_token1]; ACTIONS 409 [aux_sym__literalInt_token2;
   aux_sym__literalInt_token3]; ACTIONS 407 [aux_sym__literalFloat_token1];
   ACTIONS 411 [aux_sym_ppUsesBlock_token1]; ACTIONS 413 [sym_kAdd; sym_kSub];
   ACTIONS 415 [sym_kAt]; ACTIONS 417 [sym_kTrue; sym_kFalse]; ACTIONS 419 [sym_labelNumber];
   ACTIONS 3 [sym__space]; ACTIONS 5 [sym_ppDirective]; ACTIONS 3 [sym_comment];
   ACTIONS 417 [sym_ppFragmentExpr]; ACTIONS 397 [sym_ppFragmentStmt];
   ACTIONS 403 [sym__literalStringMultiline]; ACTIONS 421 [sym_identifier];
   ACTIONS 423 [sym_kSpecialize]; ACTIONS 425 [sym_kOn]; ACTIONS 427 [sym_kAsm];
   ACTIONS 429 [sym_kBegin]; ACTIONS 431 [sym_kCase]; ACTIONS 433 [sym_kConst];
   ACTIONS 465 [sym_kEnd]; ACTIONS 437 [sym_kFor]; ACTIONS 439 [sym_kFunction];
   ACTIONS 441 [sym_kGoto]; ACTIONS 443 [sym_kIf]; ACTIONS 445 [sym_kInherited];
   ACTIONS 417 [sym_kNil]; ACTIONS 415 [sym_kNot]; ACTIONS 439 [sym_kProcedure];
   ACTIONS 447 [sym_kRaise]; ACTIONS 449 [sym_kRepeat]; ACTIONS 451 [sym_kString];
   ACTIONS 453 [sym_kTry]; ACTIONS 455 [sym_kVar]; ACTIONS 457 [sym_kWhile];
   ACTIONS 459 [sym_kWith]].

(** State 63. *)
Definition ts_parse_table_63 : parse_row :=
  [STATE 6213 [sym_if]; STATE 6327 [sym_ifElse; sym_while; sym_repeat; sym_for; sym_foreach];
   STATE 12104 [sym_exceptionHandler]; STATE 6327 [sym_try; sym_case; sym_block; sym_asm;
   sym_with; sym_raise; sym_statement; sym_goto; sym__statement]; STATE 15991 [sym_ifTr;
   sym_ifElseTr; sym_whileTr; sym_repeatTr; sym_forTr; sym_foreachTr];
   STATE 12526 [sym_exceptionHandlerTr]; STATE 14302 [sym__exceptionHandlersTr];
   STATE 15991 [sym_tryTr; sym_caseTr]; STATE 14251 [sym_blockTr]; STATE 15991 [sym_asmTr;
   sym_withTr; sym_raiseTr; sym_statementTr; sym_gotoTr; sym__statementTr];
   STATE 13915 [sym_assignment]; STATE 11785 [sym_varAssignDef]; STATE 13915 [sym_varDef;
   sym_constDef]; STATE 6166 [sym_label]; STATE 15991 [sym__statementsTr];
   STATE 14302 [sym_statementsTr]; STATE 8019 [sym__expr; sym_exprConditional];
   STATE 7478 [sym__ref; sym_lambda; sym_inherited; sym_exprDot; sym_exprDeref; sym_exprAs;
   sym_exprTpl; sym_exprSubscript; sym_exprCall]; STATE 8019 [sym_exprBinary; sym_exprUnary];
   STATE 7478 [sym_exprParens; sym_exprBrackets; sym__literal; sym_literalString];
   STATE 6664 [sym__literalString; sym_literalChar]; STATE 7478 [sym_literalNumber];
   STATE 7742 [sym__literalInt; sym__literalFloat]; STATE 1380 [sym__ppIf];
   STATE 6327 [sym__ppStatementBlock]; STATE 11840 [aux_sym_labeledStatement_repeat1];
   STATE 12159 [aux_sym__exceptionHandlersTr_repeat1]; STATE 863 [aux_sym__statementsTr_repeat1];
   STATE 6664 [aux_sym_literalString_repeat1]; ACTIONS 397 [anon_sym_SEMI];
   ACTIONS 399 [anon_sym_LBRACK]; ACTIONS 401 [anon_sym_LPAREN];
   ACTIONS 403 [aux_sym__literalString_token1]; ACTIONS 405 [anon_sym_POUND];
   ACTIONS 407 [aux_sym__literalInt_token1]; ACTIONS 409 [aux_sym__literalInt_token2;
   aux_sym__literalInt_token3]; ACTIONS 407 [aux_sym__literalFloat_token1];
   ACTIONS 411 [aux_sym_ppUsesBlock_token1]; ACTIONS 413 [sym_kAdd; sym_kSub];
   ACTIONS 415 [sym_kAt]; ACTIONS 417 [sym_kTrue; sym_kFalse]; ACTIONS 419 [sym_labelNumber];
   ACTIONS 3 [sym__space]; ACTIONS 5 [sym_ppDirective]; ACTIONS 3 [sym_comment];
   ACTIONS 417 [sym_ppFragmentExpr]; ACTIONS 397 [sym_ppFragmentStmt];
   ACTIONS 403 [sym__literalStringMultiline]; ACTIONS 421 [sym_identifier];
   ACTIONS 423 [sym_kSpecialize]; ACTIONS 425 [sym_kOn]; ACTIONS 427 [sym_kAsm];
   ACTIONS 429 [sym_kBegin]; ACTIONS 431 [sym_kCase]; ACTIONS 433 [sym_kConst];
   ACTIONS 467 [sym_kEnd]; ACTIONS 437 [sym_kFor]; ACTIONS 439 [sym_kFunction];
   ACTIONS 441 [sym_kGoto]; ACTIONS 443 [sym_kIf]; ACTIONS 445 [sym_kInherited];
   ACTIONS 417 [sym_kNil]; ACTIONS 415 [sym_kNot]; ACTIONS 439 [sym_kProcedure];
   ACTIONS 447 [sym_kRaise]; ACTIONS 449 [sym_kRepeat]; ACTIONS 451 [sym_kString];
   ACTIONS 453 [sym_kTry]; ACTIONS 455 [sym_kVar]; ACTIONS 457 [sym_kWhile];
   ACTIONS 459 [sym_kWith]].

(** State 64. *)
Definition ts_parse_table_64 : parse_row :=
  [STATE 6213 [sym_if]; STATE 6327 [sym_ifElse; sym_while; sym_repeat; sym_for; sym_foreach];
   STATE 12104 [sym_exceptionHandler]; STATE 6327 [sym_try; sym_case; sym_block; sym_asm;
   sym_with; sym_raise; sym_statement; sym_goto; sym__statement]; STATE 15991 [sym_ifTr;
   sym_ifElseTr; sym_whileTr; sym_repeatTr; sym_forTr; sym_foreachTr];
   STATE 12526 [sym_exceptionHandlerTr]; STATE 15315 [sym__exceptionHandlersTr];
   STATE 15991 [sym_tryTr; sym_caseTr]; STATE 14251 [sym_blockTr]; STATE 15991 [sym_asmTr;
   sym_withTr; sym_raiseTr; sym_statementTr; sym_gotoTr; sym__statementTr];
   STATE 13915 [sym_assignment]; STATE 11785 [sym_varAssignDef]; STATE 13915 [sym_varDef;
   sym_constDef]; STATE 6166 [sym_label]; STATE 15991 [sym__statementsTr];
   STATE 15315 [sym_statementsTr]; STATE 8019 [sym__expr; sym_exprConditional];
   STATE 7478 [sym__ref; sym_lambda; sym_inherited; sym_exprDot; sym_exprDeref; sym_exprAs;
   sym_exprTpl; sym_exprSubscript; sym_exprCall]; STATE 8019 [sym_exprBinary; sym_exprUnary];
   STATE 7478 [sym_exprParens; sym_exprBrackets; sym__literal; sym_literalString];
   STATE 6664 [sym__literalString; sym_literalChar]; STATE 7478 [sym_literalNumber];
   STATE 7742 [sym__literalInt; sym__literalFloat]; STATE 1380 [sym__ppIf];
   STATE 6327 [sym__ppStatementBlock]; STATE 11840 [aux_sym_labeledStatement_repeat1];
   STATE 12159 [aux_sym__exceptionHandlersTr_repeat1]; STATE 863 [aux_sym__statementsTr_repeat1];
   STATE 6664 [aux_sym_literalString_repeat1]; ACTIONS 397 [anon_sym_SEMI];
   ACTIONS 399 [anon_sym_LBRACK]; ACTIONS 401 [anon_sym_LPAREN];
   ACTIONS 403 [aux_sym__literalString_token1]; ACTIONS 405 [anon_sym_POUND];
   ACTIONS 407 [aux_sym__literalInt_token1]; ACTIONS 409 [aux_sym__literalInt_token2;
   aux_sym__literalInt_token3]; ACTIONS 407 [aux_sym__literalFloat_token1];
   ACTIONS 411 [aux_sym_ppUsesBlock_token1]; ACTIONS 413 [sym_kAdd; sym_kSub];
   ACTIONS 415 [sym_kAt]; ACTIONS 417 [sym_kTrue; sym_kFalse]; ACTIONS 419 [sym_labelNumber];
   ACTIONS 3 [sym__space]; ACTIONS 5 [sym_ppDirective]; ACTIONS 3 [sym_comment];
   ACTIONS 417 [sym_ppFragmentExpr]; ACTIONS 397 [sym_ppFragmentStmt];
   ACTIONS 403 [sym__literalStringMultiline]; ACTIONS 421 [sym_identifier];
   ACTIONS 423 [sym_kSpecialize]; ACTIONS 425 [sym_kOn]; ACTIONS 427 [sym_kAsm];
   ACTIONS 429 [sym_kBegin]; ACTIONS 431 [sym_kCase]; ACTIONS 433 [sym_kConst];
   ACTIONS 469 [sym_kEnd]; ACTIONS 437 [sym_kFor]; ACTIONS 439 [sym_kFunction];
   ACTIONS 441 [sym_kGoto]; ACTIONS 443 [sym_kIf]; ACTIONS 445 [sym_kInherited];
   ACTIONS 417 [sym_kNil]; ACTIONS 415 [sym_kNot]; ACTIONS 439 [sym_kProcedure];
   ACTIONS 447 [sym_kRaise]; ACTIONS 449 [sym_kRepeat]; ACTIONS 451 [sym_kString];
   ACTIONS 453 [sym_kTry]; ACTIONS 455 [sym_kVar]; ACTIONS 457 [sym_kWhile];
   ACTIONS 459 [sym_kWith]].

(** State 65. *)
Definition ts_parse_table_65 : parse_row :=
  [STATE 6213 [sym_if]; STATE 6327 [sym_ifElse; sym_while; sym_repeat; sym_for; sym_foreach];
   STATE 12104 [sym_exceptionHandler]; STATE 6327 [sym_try; sym_case; sym_block; sym_asm;
   sym_with; sym_raise; sym_statement; sym_goto; sym__statement]; STATE 15991 [sym_ifTr;
   sym_ifElseTr; sym_whileTr; sym_repeatTr; sym_forTr; sym_foreachTr];
   STATE 12526 [sym_exceptionHandlerTr]; STATE 14190 [sym__exceptionHandlersTr];
   STATE 15991 [sym_tryTr; sym_caseTr]; STATE 14251 [sym_blockTr]; STATE 15991 [sym_asmTr;
   sym_withTr; sym_raiseTr; sym_statementTr; sym_gotoTr; sym__statementTr];
   STATE 13915 [sym_assignment]; STATE 11785 [sym_varAssignDef]; STATE 13915 [sym_varDef;
   sym_constDef]; STATE 6166 [sym_label]; STATE 15991 [sym__statementsTr];
   STATE 14190 [sym_statementsTr]; STATE 8019 [sym__expr; sym_exprConditional];
   STATE 7478 [sym__ref; sym_lambda; sym_inherited; sym_exprDot; sym_exprDeref; sym_exprAs;
   sym_exprTpl; sym_exprSubscript; sym_exprCall]; STATE 8019 [sym_exprBinary; sym_exprUnary];
   STATE 7478 [sym_exprParens; sym_exprBrackets; sym__literal; sym_literalString];
   STATE 6664 [sym__literalString; sym_literalChar]; STATE 7478 [sym_literalNumber];
   STATE 7742 [sym__literalInt; sym__literalFloat]; STATE 1380 [sym__ppIf];
   STATE 6327 [sym__ppStatementBlock]; STATE 11840 [aux_sym_labeledStatement_repeat1];
   STATE 12159 [aux_sym__exceptionHandlersTr_repeat1]; STATE 863 [aux_sym__statementsTr_repeat1];
   STATE 6664 [aux_sym_literalString_repeat1]; ACTIONS 397 [anon_sym_SEMI];
   ACTIONS 399 [anon_sym_LBRACK]; ACTIONS 401 [anon_sym_LPAREN];
   ACTIONS 403 [aux_sym__literalString_token1]; ACTIONS 405 [anon_sym_POUND];
   ACTIONS 407 [aux_sym__literalInt_token1]; ACTIONS 409 [aux_sym__literalInt_token2;
   aux_sym__literalInt_token3]; ACTIONS 407 [aux_sym__literalFloat_token1];
   ACTIONS 411 [aux_sym_ppUsesBlock_token1]; ACTIONS 413 [sym_kAdd; sym_kSub];
   ACTIONS 415 [sym_kAt]; ACTIONS 417 [sym_kTrue; sym_kFalse]; ACTIONS 419 [sym_labelNumber];
   ACTIONS 3 [sym__space]; ACTIONS 5 [sym_ppDirective]; ACTIONS 3 [sym_comment];
   ACTIONS 417 [sym_ppFragmentExpr]; ACTIONS 397 [sym_ppFragmentStmt];
   ACTIONS 403 [sym__literalStringMultiline]; ACTIONS 421 [sym_identifier];
   ACTIONS 423 [sym_kSpecialize]; ACTIONS 425 [sym_kOn]; ACTIONS 427 [sym_kAsm];
   ACTIONS 429 [sym_kBegin]; ACTIONS 431 [sym_kCase]; ACTIONS 433 [sym_kConst];
   ACTIONS 471 [sym_kEnd]; ACTIONS 437 [sym_kFor]; ACTIONS 439 [sym_kFunction];
   ACTIONS 441 [sym_kGoto]; ACTIONS 443 [sym_kIf]; ACTIONS 445 [sym_kInherited];
   ACTIONS 417 [sym_kNil]; ACTIONS 415 [sym_kNot]; ACTIONS 439 [sym_kProcedure];
   ACTIONS 447 [sym_kRaise]; ACTIONS 449 [sym_kRepeat]; ACTIONS 451 [sym_kString];
   ACTIONS 453 [sym_kTry]; ACTIONS 455 [sym_kVar]; ACTIONS 457 [sym_kWhile];
   ACTIONS 459 [sym_kWith]].

(** State 66. *)
Definition ts_parse_table_66 : parse_row :=
  [STATE 6213 [sym_if]; STATE 6327 [sym_ifElse; sym_while; sym_repeat; sym_for; sym_foreach];
   STATE 12104 [sym_exceptionHandler]; STATE 6327 [sym_try; sym_case; sym_block; sym_asm;
   sym_with; sym_raise; sym_statement; sym_goto; sym__statement]; STATE 15991 [sym_ifTr;
   sym_ifElseTr; sym_whileTr; sym_repeatTr; sym_forTr; sym_foreachTr];
   STATE 12526 [sym_exceptionHandlerTr]; STATE 15168 [sym__exceptionHandlersTr];
   STATE 15991 [sym_tryTr; sym_caseTr]; STATE 14251 [sym_blockTr]; STATE 15991 [sym_asmTr;
   sym_withTr; sym_raiseTr; sym_statementTr; sym_gotoTr; sym__statementTr];
   STATE 13915 [sym_assignment]; STATE 11785 [sym_varAssignDef]; STATE 13915 [sym_varDef;
   sym_constDef]; STATE 6166 [sym_label]; STATE 15991 [sym__statementsTr];
   STATE 15168 [sym_statementsTr]; STATE 8019 [sym__expr; sym_exprConditional];
   STATE 7478 [sym__ref; sym_lambda; sym_inherited; sym_exprDot; sym_exprDeref; sym_exprAs;
   sym_exprTpl; sym_exprSubscript; sym_exprCall]; STATE 8019 [sym_exprBinary; sym_exprUnary];
   STATE 7478 [sym_exprParens; sym_exprBrackets; sym__literal; sym_literalString];
   STATE 6664 [sym__literalString; sym_literalChar]; STATE 7478 [sym_literalNumber];
   STATE 7742 [sym__literalInt; sym__literalFloat]; STATE 1380 [sym__ppIf];
   STATE 6327 [sym__ppStatementBlock]; STATE 11840 [aux_sym_labeledStatement_repeat1];
   STATE 12159 [aux_sym__exceptionHandlersTr_repeat1]; STATE 863 [aux_sym__statementsTr_repeat1];
   STATE 6664 [aux_sym_literalString_repeat1]; ACTIONS 397 [anon_sym_SEMI];
   ACTIONS 399 [anon_sym_LBRACK]; ACTIONS 401 [anon_sym_LPAREN];
   ACTIONS 403 [aux_sym__literalString_token1]; ACTIONS 405 [anon_sym_POUND];
   ACTIONS 407 [aux_sym__literalInt_token1]; ACTIONS 409 [aux_sym__literalInt_token2;
   aux_sym__literalInt_token3]; ACTIONS 407 [aux_sym__literalFloat_token1];
   ACTIONS 411 [aux_sym_ppUsesBlock_token1]; ACTIONS 413 [sym_kAdd; sym_kSub];
   ACTIONS 415 [sym_kAt]; ACTIONS 417 [sym_kTrue; sym_kFalse]; ACTIONS 419 [sym_labelNumber];
   ACTIONS 3 [sym__space]; ACTIONS 5 [sym_ppDirective]; ACTIONS 3 [sym_comment];
   ACTIONS 417 [sym_ppFragmentExpr]; ACTIONS 397 [sym_ppFragmentStmt];
   ACTIONS 403 [sym__literalStringMultiline]; ACTIONS 421 [sym_identifier];
   ACTIONS 423 [sym_kSpecialize]; ACTIONS 425 [sym_kOn]; ACTIONS 427 [sym_kAsm];
   ACTIONS 429 [sym_kBegin]; ACTIONS 431 [sym_kCase]; ACTIONS 433 [sym_kConst];
   ACTIONS 473 [sym_kEnd]; ACTIONS 437 [sym_kFor]; ACTIONS 439 [sym_kFunction];
   ACTIONS 441 [sym_kGoto]; ACTIONS 443 [sym_kIf]; ACTIONS 445 [sym_kInherited];
   ACTIONS 417 [sym_kNil]; ACTIONS 415 [sym_kNot]; ACTIONS 439 [sym_kProcedure];
   ACTIONS 447 [sym_kRaise]; ACTIONS 449 [sym_kRepeat]; ACTIONS 451 [sym_kString];
   ACTIONS 453 [sym_kTry]; ACTIONS 455 [sym_kVar]; ACTIONS 457 [sym_kWhile];
   ACTIONS 459 [sym_kWith]].

(** State 67. *)
Definition ts_parse_table_67 : parse_row :=
  [STATE 6213 [sym_if]; STATE 6327 [sym_ifElse; sym_while; sym_repeat; sym_for; sym_foreach];
   STATE 12104 [sym_exceptionHandler]; STATE 6327 [sym_try; sym_case; sym_block; sym_asm;
   sym_with; sym_raise; sym_statement; sym_goto; sym__statement]; STATE 15991 [sym_ifTr;
   sym_ifElseTr; sym_whileTr; sym_repeatTr; sym_forTr; sym_foreachTr];
   STATE 12526 [sym_exceptionHandlerTr]; STATE 15592 [sym__exceptionHandlersTr];
   STATE 15991 [sym_tryTr; sym_caseTr]; STATE 14251 [sym_blockTr]; STATE 15991 [sym_asmTr;
   sym_withTr; sym_raiseTr; sym_statementTr; sym_gotoTr; sym__statementTr];
   STATE 13915 [sym_assignment]; STATE 11785 [sym_varAssignDef]; STATE 13915 [sym_varDef;
   sym_constDef]; STATE 6166 [sym_label]; STATE 15991 [sym__statementsTr];
   STATE 15592 [sym_statementsTr]; STATE 8019 [sym__expr; sym_exprConditional];
   STATE 7478 [sym__ref; sym_lambda; sym_inherited; sym_exprDot; sym_exprDeref; sym_exprAs;
   sym_exprTpl; sym_exprSubscript; sym_exprCall]; STATE 8019 [sym_exprBinary; sym_exprUnary];
   STATE 7478 [sym_exprParens; sym_exprBrackets; sym__literal; sym_literalString];
   STATE 6664 [sym__literalString; sym_literalChar]; STATE 7478 [sym_literalNumber];
   STATE 7742 [sym__literalInt; sym__literalFloat]; STATE 1380 [sym__ppIf];
   STATE 6327 [sym__ppStatementBlock]; STATE 11840 [aux_sym_labeledStatement_repeat1];
   STATE 12159 [aux_sym__exceptionHandlersTr_repeat1]; STATE 863 [aux_sym__statementsTr_repeat1];
   STATE 6664 [aux_sym_literalString_repeat1]; ACTIONS 397 [anon_sym_SEMI];
   ACTIONS 399 [anon_sym_LBRACK]; ACTIONS 401 [anon_sym_LPAREN];
   ACTIONS 403 [aux_sym__literalString_token1]; ACTIONS 405 [anon_sym_POUND];
   ACTIONS 407 [aux_sym__literalInt_token1]; ACTIONS 409 [aux_sym__literalInt_token2;
   aux_sym__literalInt_token3]; ACTIONS 407 [aux_sym__literalFloat_token1];
   ACTIONS 411 [aux_sym_ppUsesBlock_token1]; ACTIONS 413 [sym_kAdd; sym_kSub];
   ACTIONS 415 [sym_kAt]; ACTIONS 417 [sym_kTrue; sym_kFalse]; ACTIONS 419 [sym_labelNumber];
   ACTIONS 3 [sym__space]; ACTIONS 5 [sym_ppDirective]; ACTIONS 3 [sym_comment];
   ACTIONS 417 [sym_ppFragmentExpr]; ACTIONS 397 [sym_ppFragmentStmt];
   ACTIONS 403 [sym__literalStringMultiline]; ACTIONS 421 [sym_identifier];
   ACTIONS 423 [sym_kSpecialize]; ACTIONS 425 [sym_kOn]; ACTIONS 427 [sym_kAsm];
   ACTIONS 429 [sym_kBegin]; ACTIONS 431 [sym_kCase]; ACTIONS 433 [sym_kConst];
   ACTIONS 475 [sym_kEnd]; ACTIONS 437 [sym_kFor]; ACTIONS 439 [sym_kFunction];
   ACTIONS 441 [sym_kGoto]; ACTIONS 443 [sym_kIf]; ACTIONS 445 [sym_kInherited];
   ACTIONS 417 [sym_kNil]; ACTIONS 415 [sym_kNot]; ACTIONS 439 [sym_kProcedure];
   ACTIONS 447 [sym_kRaise]; ACTIONS 449 [sym_kRepeat]; ACTIONS 451 [sym_kString];
   ACTIONS 453 [sym_kTry]; ACTIONS 455 [sym_kVar]; ACTIONS 457 [sym_kWhile];
   ACTIONS 459 [sym_kWith]].

(** State 68. *)
Definition ts_parse_table_68 : parse_row :=
  [STATE 6213 [sym_if]; STATE 6327 [sym_ifElse; sym_while; sym_repeat; sym_for; sym_foreach];
   STATE 12104 [sym_exceptionHandler]; STATE 6327 [sym_try; sym_case; sym_block; sym_asm;
   sym_with; sym_raise; sym_statement; sym_goto; sym__statement]; STATE 15991 [sym_ifTr;
   sym_ifElseTr; sym_whileTr; sym_repeatTr; sym_forTr; sym_foreachTr];
   STATE 12526 [sym_exceptionHandlerTr]; STATE 15086 [sym__exceptionHandlersTr];
   STATE 15991 [sym_tryTr; sym_caseTr]; STATE 14251 [sym_blockTr]; STATE 15991 [sym_asmTr;
   sym_withTr; sym_raiseTr; sym_statementTr; sym_gotoTr; sym__statementTr];
   STATE 13915 [sym_assignment]; STATE 11785 [sym_varAssignDef]; STATE 13915 [sym_varDef;
   sym_constDef]; STATE 6166 [sym_label]; STATE 15991 [sym__statementsTr];
   STATE 15086 [sym_statementsTr]; STATE 8019 [sym__expr; sym_exprConditional];
   STATE 7478 [sym__ref; sym_lambda; sym_inherited; sym_exprDot; sym_exprDeref; sym_exprAs;
   sym_exprTpl; sym_exprSubscript; sym_exprCall]; STATE 8019 [sym_exprBinary; sym_exprUnary];
   STATE 7478 [sym_exprParens; sym_exprBrackets; sym__literal; sym_literalString];
   STATE 6664 [sym__literalString; sym_literalChar]; STATE 7478 [sym_literalNumber];
   STATE 7742 [sym__literalInt; sym__literalFloat]; STATE 1380 [sym__ppIf];
   STATE 6327 [sym__ppStatementBlock]; STATE 11840 [aux_sym_labeledStatement_repeat1];
   STATE 12159 [aux_sym__exceptionHandlersTr_repeat1]; STATE 863 [aux_sym__statementsTr_repeat1];
   STATE 6664 [aux_sym_literalString_repeat1]; ACTIONS 397 [anon_sym_SEMI];
   ACTIONS 399 [anon_sym_LBRACK]; ACTIONS 401 [anon_sym_LPAREN];
   ACTIONS 403 [aux_sym__literalString_token1]; ACTIONS 405 [anon_sym_POUND];
   ACTIONS 407 [aux_sym__literalInt_token1]; ACTIONS 409 [aux_sym__literalInt_token2;
   aux_sym__literalInt_token3]; ACTIONS 407 [aux_sym__literalFloat_token1];
   ACTIONS 411 [aux_sym_ppUsesBlock_token1]; ACTIONS 413 [sym_kAdd; sym_kSub];
   ACTIONS 415 [sym_kAt]; ACTIONS 417 [sym_kTrue; sym_kFalse]; ACTIONS 419 [sym_labelNumber];
   ACTIONS 3 [sym__space]; ACTIONS 5 [sym_ppDirective]; ACTIONS 3 [sym_comment];
   ACTIONS 417 [sym_ppFragmentExpr]; ACTIONS 397 [sym_ppFragmentStmt];
   ACTIONS 403 [sym__literalStringMultiline]; ACTIONS 421 [sym_identifier];
   ACTIONS 423 [sym_kSpecialize]; ACTIONS 425 [sym_kOn]; ACTIONS 427 [sym_kAsm];
   ACTIONS 429 [sym_kBegin]; ACTIONS 431 [sym_kCase]; ACTIONS 433 [sym_kConst];
   ACTIONS 477 [sym_kEnd]; ACTIONS 437 [sym_kFor]; ACTIONS 439 [sym_kFunction];
   ACTIONS 441 [sym_kGoto]; ACTIONS 443 [sym_kIf]; ACTIONS 445 [sym_kInherited];
   ACTIONS 417 [sym_kNil]; ACTIONS 415 [sym_kNot]; ACTIONS 439 [sym_kProcedure];
   ACTIONS 447 [sym_kRaise]; ACTIONS 449 [sym_kRepeat]; ACTIONS 451 [sym_kString];
   ACTIONS 453 [sym_kTry]; ACTIONS 455 [sym_kVar]; ACTIONS 457 [sym_kWhile];
   ACTIONS 459 [sym_kWith]].

(** State 69. *)
Definition ts_parse_table_69 : parse_row :=
  [STATE 6213 [sym_if]; STATE 6327 [sym_ifElse; sym_while; sym_repeat; sym_for; sym_foreach];
   STATE 12104 [sym_exceptionHandler]; STATE 6327 [sym_try; sym_case; sym_block; sym_asm;
   sym_with; sym_raise; sym_statement; sym_goto; sym__statement]; STATE 15991 [sym_ifTr;
   sym_ifElseTr; sym_whileTr; sym_repeatTr; sym_forTr; sym_foreachTr];
   STATE 12526 [sym_exceptionHandlerTr]; STATE 15546 [sym__exceptionHandlersTr];
   STATE 15991 [sym_tryTr; sym_caseTr]; STATE 14251 [sym_blockTr]; STATE 15991 [sym_asmTr;
   sym_withTr; sym_raiseTr; sym_statementTr; sym_gotoTr; sym__statementTr];
   STATE 13915 [sym_assignment]; STATE 11785 [sym_varAssignDef]; STATE 13915 [sym_varDef;
   sym_constDef]; STATE 6166 [sym_label]; STATE 15991 [sym__statementsTr];
   STATE 15546 [sym_statementsTr]; STATE 8019 [sym__expr; sym_exprConditional];
   STATE 7478 [sym__ref; sym_lambda; sym_inherited; sym_exprDot; sym_exprDeref; sym_exprAs;
   sym_exprTpl; sym_exprSubscript; sym_exprCall]; STATE 8019 [sym_exprBinary; sym_exprUnary];
   STATE 7478 [sym_exprParens; sym_exprBrackets; sym__literal; sym_literalString];
   STATE 6664 [sym__literalString; sym_literalChar]; STATE 7478 [sym_literalNumber];
   STATE 7742 [sym__literalInt; sym__literalFloat]; STATE 1380 [sym__ppIf];
   STATE 6327 [sym__ppStatementBlock]; STATE 11840 [aux_sym_labeledStatement_repeat1];
   STATE 12159 [aux_sym__exceptionHandlersTr_repeat1]; STATE 863 [aux_sym__statementsTr_repeat1];
   STATE 6664 [aux_sym_literalString_repeat1]; ACTIONS 397 [anon_sym_SEMI];
   ACTIONS 399 [anon_sym_LBRACK]; ACTIONS 401 [anon_sym_LPAREN];
   ACTIONS 403 [aux_sym__literalString_token1]; ACTIONS 405 [anon_sym_POUND];
   ACTIONS 407 [aux_sym__literalInt_token1]; ACTIONS 409 [aux_sym__literalInt_token2;
   aux_sym__literalInt_token3]; ACTIONS 407 [aux_sym__literalFloat_token1];
   ACTIONS 411 [aux_sym_ppUsesBlock_token1]; ACTIONS 413 [sym_kAdd; sym_kSub];
   ACTIONS 415 [sym_kAt]; ACTIONS 417 [sym_kTrue; sym_kFalse]; ACTIONS 419 [sym_labelNumber];
   ACTIONS 3 [sym__space]; ACTIONS 5 [sym_ppDirective]; ACTIONS 3 [sym_comment];
   ACTIONS 417 [sym_ppFragmentExpr]; ACTIONS 397 [sym_ppFragmentStmt];
   ACTIONS 403 [sym__literalStringMultiline]; ACTIONS 421 [sym_identifier];
   ACTIONS 423 [sym_kSpecialize]; ACTIONS 425 [sym_kOn]; ACTIONS 427 [sym_kAsm];
   ACTIONS 429 [sym_kBegin]; ACTIONS 431 [sym_kCase]; ACTIONS 433 [sym_kConst];
   ACTIONS 479 [sym_kEnd]; ACTIONS 437 [sym_kFor]; ACTIONS 439 [sym_kFunction];
   ACTIONS 441 [sym_kGoto]; ACTIONS 443 [sym_kIf]; ACTIONS 445 [sym_kInherited];
   ACTIONS 417 [sym_kNil]; ACTIONS 415 [sym_kNot]; ACTIONS 439 [sym_kProcedure];
   ACTIONS 447 [sym_kRaise]; ACTIONS 449 [sym_kRepeat]; ACTIONS 451 [sym_kString];
   ACTIONS 453 [sym_kTry]; ACTIONS 455 [sym_kVar]; ACTIONS 457 [sym_kWhile];
   ACTIONS 459 [sym_kWith]].

(** State 70. *)
Definition ts_parse_table_70 : parse_row :=
  [STATE 6213 [sym_if]; STATE 6327 [sym_ifElse; sym_while; sym_repeat; sym_for; sym_foreach];
   STATE 12104 [sym_exceptionHandler]; STATE 6327 [sym_try; sym_case; sym_block; sym_asm;
   sym_with; sym_raise; sym_statement; sym_goto; sym__statement]; STATE 15991 [sym_ifTr;
   sym_ifElseTr; sym_whileTr; sym_repeatTr; sym_forTr; sym_foreachTr];
   STATE 12526 [sym_exceptionHandlerTr]; STATE 15011 [sym__exceptionHandlersTr];
   STATE 15991 [sym_tryTr; sym_caseTr]; STATE 14251 [sym_blockTr]; STATE 15991 [sym_asmTr;
   sym_withTr; sym_raiseTr; sym_statementTr; sym_gotoTr; sym__statementTr];
   STATE 13915 [sym_assignment]; STATE 11785 [sym_varAssignDef]; STATE 13915 [sym_varDef;
   sym_constDef]; STATE 6166 [sym_label]; STATE 15991 [sym__statementsTr];
   STATE 15011 [sym_statementsTr]; STATE 8019 [sym__expr; sym_exprConditional];
   STATE 7478 [sym__ref; sym_lambda; sym_inherited; sym_exprDot; sym_exprDeref; sym_exprAs;
   sym_exprTpl; sym_exprSubscript; sym_exprCall]; STATE 8019 [sym_exprBinary; sym_exprUnary];
   STATE 7478 [sym_exprParens; sym_exprBrackets; sym__literal; sym_literalString];
   STATE 6664 [sym__literalString; sym_literalChar]; STATE 7478 [sym_literalNumber];
   STATE 7742 [sym__literalInt; sym__literalFloat]; STATE 1380 [sym__ppIf];
   STATE 6327 [sym__ppStatementBlock]; STATE 11840 [aux_sym_labeledStatement_repeat1];
   STATE 12159 [aux_sym__exceptionHandlersTr_repeat1]; STATE 863 [aux_sym__statementsTr_repeat1];
   STATE 6664 [aux_sym_literalString_repeat1]; ACTIONS 397 [anon_sym_SEMI];
   ACTIONS 399 [anon_sym_LBRACK]; ACTIONS 401 [anon_sym_LPAREN];
   ACTIONS 403 [aux_sym__literalString_token1]; ACTIONS 405 [anon_sym_POUND];
   ACTIONS 407 [aux_sym__literalInt_token1]; ACTIONS 409 [aux_sym__literalInt_token2;
   aux_sym__literalInt_token3]; ACTIONS 407 [aux_sym__literalFloat_token1];
   ACTIONS 411 [aux_sym_ppUsesBlock_token1]; ACTIONS 413 [sym_kAdd; sym_kSub];
   ACTIONS 415 [sym_kAt]; ACTIONS 417 [sym_kTrue; sym_kFalse]; ACTIONS 419 [sym_labelNumber];
   ACTIONS 3 [sym__space]; ACTIONS 5 [sym_ppDirective]; ACTIONS 3 [sym_comment];
   ACTIONS 417 [sym_ppFragmentExpr]; ACTIONS 397 [sym_ppFragmentStmt];
   ACTIONS 403 [sym__literalStringMultiline]; ACTIONS 421 [sym_identifier];
   ACTIONS 423 [sym_kSpecialize]; ACTIONS 425 [sym_kOn]; ACTIONS 427 [sym_kAsm];
   ACTIONS 429 [sym_kBegin]; ACTIONS 431 [sym_kCase]; ACTIONS 433 [sym_kConst];
   ACTIONS 481 [sym_kEnd]; ACTIONS 437 [sym_kFor]; ACTIONS 439 [sym_kFunction];
   ACTIONS 441 [sym_kGoto]; ACTIONS 443 [sym_kIf]; ACTIONS 445 [sym_kInherited];
   ACTIONS 417 [sym_kNil]; ACTIONS 415 [sym_kNot]; ACTIONS 439 [sym_kProcedure];
   ACTIONS 447 [sym_kRaise]; ACTIONS 449 [sym_kRepeat]; ACTIONS 451 [sym_kString];
   ACTIONS 453 [sym_kTry]; ACTIONS 455 [sym_kVar]; ACTIONS 457 [sym_kWhile];
   ACTIONS 459 [sym_kWith]].

(** State 71. *)
Definition ts_parse_table_71 : parse_row :=
  [STATE 6213 [sym_if]; STATE 6327 [sym_ifElse; sym_while; sym_repeat; sym_for; sym_foreach];
   STATE 12104 [sym_exceptionHandler]; STATE 6327 [sym_try; sym_case; sym_block; sym_asm;
   sym_with; sym_raise; sym_statement; sym_goto; sym__statement]; STATE 15991 [sym_ifTr;
   sym_ifElseTr; sym_whileTr; sym_repeatTr; sym_forTr; sym_foreachTr];
   STATE 12526 [sym_exceptionHandlerTr]; STATE 14428 [sym__exceptionHandlersTr];
   STATE 15991 [sym_tryTr; sym_caseTr]; STATE 14251 [sym_blockTr]; STATE 15991 [sym_asmTr;
   sym_withTr; sym_raiseTr; sym_statementTr; sym_gotoTr; sym__statementTr];
   STATE 13915 [sym_assignment]; STATE 11785 [sym_varAssignDef]; STATE 13915 [sym_varDef;
   sym_constDef]; STATE 6166 [sym_label]; STATE 15991 [sym__statementsTr];
   STATE 14428 [sym_statementsTr]; STATE 8019 [sym__expr; sym_exprConditional];
   STATE 7478 [sym__ref; sym_lambda; sym_inherited; sym_exprDot; sym_exprDeref; sym_exprAs;
   sym_exprTpl; sym_exprSubscript; sym_exprCall]; STATE 8019 [sym_exprBinary; sym_exprUnary];
   STATE 7478 [sym_exprParens; sym_exprBrackets; sym__literal; sym_literalString];
   STATE 6664 [sym__literalString; sym_literalChar]; STATE 7478 [sym_literalNumber];
   STATE 7742 [sym__literalInt; sym__literalFloat]; STATE 1380 [sym__ppIf];
   STATE 6327 [sym__ppStatementBlock]; STATE 11840 [aux_sym_labeledStatement_repeat1];
   STATE 12159 [aux_sym__exceptionHandlersTr_repeat1]; STATE 863 [aux_sym__statementsTr_repeat1];
   STATE 6664 [aux_sym_literalString_repeat1]; ACTIONS 397 [anon_sym_SEMI];
   ACTIONS 399 [anon_sym_LBRACK]; ACTIONS 401 [anon_sym_LPAREN];
   ACTIONS 403 [aux_sym__literalString_token1]; ACTIONS 405 [anon_sym_POUND];
   ACTIONS 407 [aux_sym__literalInt_token1]; ACTIONS 409 [aux_sym__literalInt_token2;
   aux_sym__literalInt_token3]; ACTIONS 407 [aux_sym__literalFloat_token1];
   ACTIONS 411 [aux_sym_ppUsesBlock_token1]; ACTIONS 413 [sym_kAdd; sym_kSub];
   ACTIONS 415 [sym_kAt]; ACTIONS 417 [sym_kTrue; sym_kFalse]; ACTIONS 419 [sym_labelNumber];
   ACTIONS 3 [sym__space]; ACTIONS 5 [sym_ppDirective]; ACTIONS 3 [sym_comment];
   ACTIONS 417 [sym_ppFragmentExpr]; ACTIONS 397 [sym_ppFragmentStmt];
   ACTIONS 403 [sym__literalStringMultiline]; ACTIONS 421 [sym_identifier];
   ACTIONS 423 [sym_kSpecialize]; ACTIONS 425 [sym_kOn]; ACTIONS 427 [sym_kAsm];
   ACTIONS 429 [sym_kBegin]; ACTIONS 431 [sym_kCase]; ACTIONS 433 [sym_kConst];
   ACTIONS 483 [sym_kEnd]; ACTIONS 437 [sym_kFor]; ACTIONS 439 [sym_kFunction];
   ACTIONS 441 [sym_kGoto]; ACTIONS 443 [sym_kIf]; ACTIONS 445 [sym_kInherited];
   ACTIONS 417 [sym_kNil]; ACTIONS 415 [sym_kNot]; ACTIONS 439 [sym_kProcedure];
   ACTIONS 447 [sym_kRaise]; ACTIONS 449 [sym_kRepeat]; ACTIONS 451 [sym_kString];
   ACTIONS 453 [sym_kTry]; ACTIONS 455 [sym_kVar]; ACTIONS 457 [sym_kWhile];
   ACTIONS 459 [sym_kWith]].

(** State 72. *)
Definition ts_parse_table_72 : parse_row :=
  [STATE 6213 [sym_if]; STATE 6327 [sym_ifElse; sym_while; sym_repeat; sym_for; sym_foreach];
   STATE 12104 [sym_exceptionHandler]; STATE 6327 [sym_try; sym_case; sym_block; sym_asm;
   sym_with; sym_raise; sym_statement; sym_goto; sym__statement]; STATE 15991 [sym_ifTr;
   sym_ifElseTr; sym_whileTr; sym_repeatTr; sym_forTr; sym_foreachTr];
   STATE 12526 [sym_exceptionHandlerTr]; STATE 14705 [sym__exceptionHandlersTr];
   STATE 15991 [sym_tryTr; sym_caseTr]; STATE 14251 [sym_blockTr]; STATE 15991 [sym_asmTr;
   sym_withTr; sym_raiseTr; sym_statementTr; sym_gotoTr; sym__statementTr];
   STATE 13915 [sym_assignment]; STATE 11785 [sym_varAssignDef]; STATE 13915 [sym_varDef;
   sym_constDef]; STATE 6166 [sym_label]; STATE 15991 [sym__statementsTr];
   STATE 14705 [sym_statementsTr]; STATE 8019 [sym__expr; sym_exprConditional];
   STATE 7478 [sym__ref; sym_lambda; sym_inherited; sym_exprDot; sym_exprDeref; sym_exprAs;
   sym_exprTpl; sym_exprSubscript; sym_exprCall]; STATE 8019 [sym_exprBinary; sym_exprUnary];
   STATE 7478 [sym_exprParens; sym_exprBrackets; sym__literal; sym_literalString];
   STATE 6664 [sym__literalString; sym_literalChar]; STATE 7478 [sym_literalNumber];
   STATE 7742 [sym__literalInt; sym__literalFloat]; STATE 1380 [sym__ppIf];
   STATE 6327 [sym__ppStatementBlock]; STATE 11840 [aux_sym_labeledStatement_repeat1];
   STATE 12159 [aux_sym__exceptionHandlersTr_repeat1]; STATE 863 [aux_sym__statementsTr_repeat1];
   STATE 6664 [aux_sym_literalString_repeat1]; ACTIONS 397 [anon_sym_SEMI];
   ACTIONS 399 [anon_sym_LBRACK]; ACTIONS 401 [anon_sym_LPAREN];
   ACTIONS 403 [aux_sym__literalString_token1]; ACTIONS 405 [anon_sym_POUND];
   ACTIONS 407 [aux_sym__literalInt_token1]; ACTIONS 409 [aux_sym__literalInt_token2;
   aux_sym__literalInt_token3]; ACTIONS 407 [aux_sym__literalFloat_token1];
   ACTIONS 411 [aux_sym_ppUsesBlock_token1]; ACTIONS 413 [sym_kAdd; sym_kSub];
   ACTIONS 415 [sym_kAt]; ACTIONS 417 [sym_kTrue; sym_kFalse]; ACTIONS 419 [sym_labelNumber];
   ACTIONS 3 [sym__space]; ACTIONS 5 [sym_ppDirective]; ACTIONS 3 [sym_comment];
   ACTIONS 417 [sym_ppFragmentExpr]; ACTIONS 397 [sym_ppFragmentStmt];
   ACTIONS 403 [sym__literalStringMultiline]; ACTIONS 421 [sym_identifier];
   ACTIONS 423 [sym_kSpecialize]; ACTIONS 425 [sym_kOn]; ACTIONS 427 [sym_kAsm];
   ACTIONS 429 [sym_kBegin]; ACTIONS 431 [sym_kCase]; ACTIONS 433 [sym_kConst];
   ACTIONS 485 [sym_kEnd]; ACTIONS 437 [sym_kFor]; ACTIONS 439 [sym_kFunction];
   ACTIONS 441 [sym_kGoto]; ACTIONS 443 [sym_kIf]; ACTIONS 445 [sym_kInherited];
   ACTIONS 417 [sym_kNil]; ACTIONS 415 [sym_kNot]; ACTIONS 439 [sym_kProcedure];
   ACTIONS 447 [sym_kRaise]; ACTIONS 449 [sym_kRepeat]; ACTIONS 451 [sym_kString];
   ACTIONS 453 [sym_kTry]; ACTIONS 455 [sym_kVar]; ACTIONS 457 [sym_kWhile];
   ACTIONS 459 [sym_kWith]].

(** State 73. *)
Definition ts_parse_table_73 : parse_row :=
  [STATE 6213 [sym_if]; STATE 6327 [sym_ifElse; sym_while; sym_repeat; sym_for; sym_foreach];
   STATE 12104 [sym_exceptionHandler]; STATE 6327 [sym_try; sym_case; sym_block; sym_asm;
   sym_with; sym_raise; sym_statement; sym_goto; sym__statement]; STATE 15991 [sym_ifTr;
   sym_ifElseTr; sym_whileTr; sym_repeatTr; sym_forTr; sym_foreachTr];
   STATE 12526 [sym_exceptionHandlerTr]; STATE 14886 [sym__exceptionHandlersTr];
   STATE 15991 [sym_tryTr; sym_caseTr]; STATE 14251 [sym_blockTr]; STATE 15991 [sym_asmTr;
   sym_withTr; sym_raiseTr; sym_statementTr; sym_gotoTr; sym__statementTr];
   STATE 13915 [sym_assignment]; STATE 11785 [sym_varAssignDef]; STATE 13915 [sym_varDef;
   sym_constDef]; STATE 6166 [sym_label]; STATE 15991 [sym__statementsTr];
   STATE 14886 [sym_statementsTr]; STATE 8019 [sym__expr; sym_exprConditional];
   STATE 7478 [sym__ref; sym_lambda; sym_inherited; sym_exprDot; sym_exprDeref; sym_exprAs;
   sym_exprTpl; sym_exprSubscript; sym_exprCall]; STATE 8019 [sym_exprBinary; sym_exprUnary];
   STATE 7478 [sym_exprParens; sym_exprBrackets; sym__literal; sym_literalString];
   STATE 6664 [sym__literalString; sym_literalChar]; STATE 7478 [sym_literalNumber];
   STATE 7742 [sym__literalInt; sym__literalFloat]; STATE 1380 [sym__ppIf];
   STATE 6327 [sym__ppStatementBlock]; STATE 11840 [aux_sym_labeledStatement_repeat1];
   STATE 12159 [aux_sym__exceptionHandlersTr_repeat1]; STATE 863 [aux_sym__statementsTr_repeat1];
   STATE 6664 [aux_sym_literalString_repeat1]; ACTIONS 397 [anon_sym_SEMI];
   ACTIONS 399 [anon_sym_LBRACK]; ACTIONS 401 [anon_sym_LPAREN];
   ACTIONS 403 [aux_sym__literalString_token1]; ACTIONS 405 [anon_sym_POUND];
   ACTIONS 407 [aux_sym__literalInt_token1]; ACTIONS 409 [aux_sym__literalInt_token2;
   aux_sym__literalInt_token3]; ACTIONS 407 [aux_sym__literalFloat_token1];
   ACTIONS 411 [aux_sym_ppUsesBlock_token1]; ACTIONS 413 [sym_kAdd; sym_kSub];
   ACTIONS 415 [sym_kAt]; ACTIONS 417 [sym_kTrue; sym_kFalse]; ACTIONS 419 [sym_labelNumber];
   ACTIONS 3 [sym__space]; ACTIONS 5 [sym_ppDirective]; ACTIONS 3 [sym_comment];
   ACTIONS 417 [sym_ppFragmentExpr]; ACTIONS 397 [sym_ppFragmentStmt];
   ACTIONS 403 [sym__literalStringMultiline]; ACTIONS 421 [sym_identifier];
   ACTIONS 423 [sym_kSpecialize]; ACTIONS 425 [sym_kOn]; ACTIONS 427 [sym_kAsm];
   ACTIONS 429 [sym_kBegin]; ACTIONS 431 [sym_kCase]; ACTIONS 433 [sym_kConst];
   ACTIONS 487 [sym_kEnd]; ACTIONS 437 [sym_kFor]; ACTIONS 439 [sym_kFunction];
   ACTIONS 441 [sym_kGoto]; ACTIONS 443 [sym_kIf]; ACTIONS 445 [sym_kInherited];
   ACTIONS 417 [sym_kNil]; ACTIONS 415 [sym_kNot]; ACTIONS 439 [sym_kProcedure];
   ACTIONS 447 [sym_kRaise]; ACTIONS 449 [sym_kRepeat]; ACTIONS 451 [sym_kString];
   ACTIONS 453 [sym_kTry]; ACTIONS 455 [sym_kVar]; ACTIONS 457 [sym_kWhile];
   ACTIONS 459 [sym_kWith]].

(** State 74. *)
Definition ts_parse_table_74 : parse_row :=
  [STATE 6213 [sym_if]; STATE 6327 [sym_ifElse; sym_while; sym_repeat; sym_for; sym_foreach];
   STATE 12104 [sym_exceptionHandler]; STATE 6327 [sym_try; sym_case; sym_block; sym_asm;
   sym_with; sym_raise; sym_statement; sym_goto; sym__statement]; STATE 15991 [sym_ifTr;
   sym_ifElseTr; sym_whileTr; sym_repeatTr; sym_forTr; sym_foreachTr];
   STATE 12526 [sym_exceptionHandlerTr]; STATE 14891 [sym__exceptionHandlersTr];
   STATE 15991 [sym_tryTr; sym_caseTr]; STATE 14251 [sym_blockTr]; STATE 15991 [sym_asmTr;
   sym_withTr; sym_raiseTr; sym_statementTr; sym_gotoTr; sym__statementTr];
   STATE 13915 [sym_assignment]; STATE 11785 [sym_varAssignDef]; STATE 13915 [sym_varDef;
   sym_constDef]; STATE 6166 [sym_label]; STATE 15991 [sym__statementsTr];
   STATE 14891 [sym_statementsTr]; STATE 8019 [sym__expr; sym_exprConditional];
   STATE 7478 [sym__ref; sym_lambda; sym_inherited; sym_exprDot; sym_exprDeref; sym_exprAs;
   sym_exprTpl; sym_exprSubscript; sym_exprCall]; STATE 8019 [sym_exprBinary; sym_exprUnary];
   STATE 7478 [sym_exprParens; sym_exprBrackets; sym__literal; sym_literalString];
   STATE 6664 [sym__literalString; sym_literalChar]; STATE 7478 [sym_literalNumber];
   STATE 7742 [sym__literalInt; sym__literalFloat]; STATE 1380 [sym__ppIf];
   STATE 6327 [sym__ppStatementBlock]; STATE 11840 [aux_sym_labeledStatement_repeat1];
   STATE 12159 [aux_sym__exceptionHandlersTr_repeat1]; STATE 863 [aux_sym__statementsTr_repeat1];
   STATE 6664 [aux_sym_literalString_repeat1]; ACTIONS 397 [anon_sym_SEMI];
   ACTIONS 399 [anon_sym_LBRACK]; ACTIONS 401 [anon_sym_LPAREN];
   ACTIONS 403 [aux_sym__literalString_token1]; ACTIONS 405 [anon_sym_POUND];
   ACTIONS 407 [aux_sym__literalInt_token1]; ACTIONS 409 [aux_sym__literalInt_token2;
   aux_sym__literalInt_token3]; ACTIONS 407 [aux_sym__literalFloat_token1];
   ACTIONS 411 [aux_sym_ppUsesBlock_token1]; ACTIONS 413 [sym_kAdd; sym_kSub];
   ACTIONS 415 [sym_kAt]; ACTIONS 417 [sym_kTrue; sym_kFalse]; ACTIONS 419 [sym_labelNumber];
   ACTIONS 3 [sym__space]; ACTIONS 5 [sym_ppDirective]; ACTIONS 3 [sym_comment];
   ACTIONS 417 [sym_ppFragmentExpr]; ACTIONS 397 [sym_ppFragmentStmt];
   ACTIONS 403 [sym__literalStringMultiline]; ACTIONS 421 [sym_identifier];
   ACTIONS 423 [sym_kSpecialize]; ACTIONS 425 [sym_kOn]; ACTIONS 427 [sym_kAsm];
   ACTIONS 429 [sym_kBegin]; ACTIONS 431 [sym_kCase]; ACTIONS 433 [sym_kConst];
   ACTIONS 489 [sym_kEnd]; ACTIONS 437 [sym_kFor]; ACTIONS 439 [sym_kFunction];
   ACTIONS 441 [sym_kGoto]; ACTIONS 443 [sym_kIf]; ACTIONS 445 [sym_kInherited];
   ACTIONS 417 [sym_kNil]; ACTIONS 415 [sym_kNot]; ACTIONS 439 [sym_kProcedure];
   ACTIONS 447 [sym_kRaise]; ACTIONS 449 [sym_kRepeat]; ACTIONS 451 [sym_kString];
   ACTIONS 453 [sym_kTry]; ACTIONS 455 [sym_kVar]; ACTIONS 457 [sym_kWhile];
   ACTIONS 459 [sym_kWith]].

(** State 75. *)
Definition ts_parse_table_75 : parse_row :=
  [STATE 6213 [sym_if]; STATE 6327 [sym_ifElse; sym_while; sym_repeat; sym_for; sym_foreach];
   STATE 12104 [sym_exceptionHandler]; STATE 6327 [sym_try; sym_case; sym_block; sym_asm;
   sym_with; sym_raise; sym_statement; sym_goto; sym__statement]; STATE 15991 [sym_ifTr;
   sym_ifElseTr; sym_whileTr; sym_repeatTr; sym_forTr; sym_foreachTr];
   STATE 12526 [sym_exceptionHandlerTr]; STATE 14325 [sym__exceptionHandlersTr];
   STATE 15991 [sym_tryTr; sym_caseTr]; STATE 14251 [sym_blockTr]; STATE 15991 [sym_asmTr;
   sym_withTr; sym_raiseTr; sym_statementTr; sym_gotoTr; sym__statementTr];
   STATE 13915 [sym_assignment]; STATE 11785 [sym_varAssignDef]; STATE 13915 [sym_varDef;
   sym_constDef]; STATE 6166 [sym_label]; STATE 15991 [sym__statementsTr];
   STATE 14325 [sym_statementsTr]; STATE 8019 [sym__expr; sym_exprConditional];
   STATE 7478 [sym__ref; sym_lambda; sym_inherited; sym_exprDot; sym_exprDeref; sym_exprAs;
   sym_exprTpl; sym_exprSubscript; sym_exprCall]; STATE 8019 [sym_exprBinary; sym_exprUnary];
   STATE 7478 [sym_exprParens; sym_exprBrackets; sym__literal; sym_literalString];
   STATE 6664 [sym__literalString; sym_literalChar]; STATE 7478 [sym_literalNumber];
   STATE 7742 [sym__literalInt; sym__literalFloat]; STATE 1380 [sym__ppIf];
   STATE 6327 [sym__ppStatementBlock]; STATE 11840 [aux_sym_labeledStatement_repeat1];
   STATE 12159 [aux_sym__exceptionHandlersTr_repeat1]; STATE 863 [aux_sym__statementsTr_repeat1];
   STATE 6664 [aux_sym_literalString_repeat1]; ACTIONS 397 [anon_sym_SEMI];
   ACTIONS 399 [anon_sym_LBRACK]; ACTIONS 401 [anon_sym_LPAREN];
   ACTIONS 403 [aux_sym__literalString_token1]; ACTIONS 405 [anon_sym_POUND];
   ACTIONS 407 [aux_sym__literalInt_token1]; ACTIONS 409 [aux_sym__literalInt_token2;
   aux_sym__literalInt_token3]; ACTIONS 407 [aux_sym__literalFloat_token1];
   ACTIONS 411 [aux_sym_ppUsesBlock_token1]; ACTIONS 413 [sym_kAdd; sym_kSub];
   ACTIONS 415 [sym_kAt]; ACTIONS 417 [sym_kTrue; sym_kFalse]; ACTIONS 419 [sym_labelNumber];
   ACTIONS 3 [sym__space]; ACTIONS 5 [sym_ppDirective]; ACTIONS 3 [sym_comment];
   ACTIONS 417 [sym_ppFragmentExpr]; ACTIONS 397 [sym_ppFragmentStmt];
   ACTIONS 403 [sym__literalStringMultiline]; ACTIONS 421 [sym_identifier];
   ACTIONS 423 [sym_kSpecialize]; ACTIONS 425 [sym_kOn]; ACTIONS 427 [sym_kAsm];
   ACTIONS 429 [sym_kBegin]; ACTIONS 431 [sym_kCase]; ACTIONS 433 [sym_kConst];
   ACTIONS 491 [sym_kEnd]; ACTIONS 437 [sym_kFor]; ACTIONS 439 [sym_kFunction];
   ACTIONS 441 [sym_kGoto]; ACTIONS 443 [sym_kIf]; ACTIONS 445 [sym_kInherited];
   ACTIONS 417 [sym_kNil]; ACTIONS 415 [sym_kNot]; ACTIONS 439 [sym_kProcedure];
   ACTIONS 447 [sym_kRaise]; ACTIONS 449 [sym_kRepeat]; ACTIONS 451 [sym_kString];
   ACTIONS 453 [sym_kTry]; ACTIONS 455 [sym_kVar]; ACTIONS 457 [sym_kWhile];
   ACTIONS 459 [sym_kWith]].

(** State 76. *)
Definition ts_parse_table_76 : parse_row :=
  [STATE 6213 [sym_if]; STATE 6327 [sym_ifElse; sym_while; sym_repeat; sym_for; sym_foreach];
   STATE 12104 [sym_exceptionHandler]; STATE 6327 [sym_try; sym_case; sym_block; sym_asm;
   sym_with; sym_raise; sym_statement; sym_goto; sym__statement]; STATE 15991 [sym_ifTr;
   sym_ifElseTr; sym_whileTr; sym_repeatTr; sym_forTr; sym_foreachTr];
   STATE 12526 [sym_exceptionHandlerTr]; STATE 15490 [sym__exceptionHandlersTr];
   STATE 15991 [sym_tryTr; sym_caseTr]; STATE 14251 [sym_blockTr]; STATE 15991 [sym_asmTr;
   sym_withTr; sym_raiseTr; sym_statementTr; sym_gotoTr; sym__statementTr];
   STATE 13915 [sym_assignment]; STATE 11785 [sym_varAssignDef]; STATE 13915 [sym_varDef;
   sym_constDef]; STATE 6166 [sym_label]; STATE 15991 [sym__statementsTr];
   STATE 15490 [sym_statementsTr]; STATE 8019 [sym__expr; sym_exprConditional];
   STATE 7478 [sym__ref; sym_lambda; sym_inherited; sym_exprDot; sym_exprDeref; sym_exprAs;
   sym_exprTpl; sym_exprSubscript; sym_exprCall]; STATE 8019 [sym_exprBinary; sym_exprUnary];
   STATE 7478 [sym_exprParens; sym_exprBrackets; sym__literal; sym_literalString];
   STATE 6664 [sym__literalString; sym_literalChar]; STATE 7478 [sym_literalNumber];
   STATE 7742 [sym__literalInt; sym__literalFloat]; STATE 1380 [sym__ppIf];
   STATE 6327 [sym__ppStatementBlock]; STATE 11840 [aux_sym_labeledStatement_repeat1];
   STATE 12159 [aux_sym__exceptionHandlersTr_repeat1]; STATE 863 [aux_sym__statementsTr_repeat1];
   STATE 6664 [aux_sym_literalString_repeat1]; ACTIONS 397 [anon_sym_SEMI];
   ACTIONS 399 [anon_sym_LBRACK]; ACTIONS 401 [anon_sym_LPAREN];
   ACTIONS 403 [aux_sym__literalString_token1]; ACTIONS 405 [anon_sym_POUND];
   ACTIONS 407 [aux_sym__literalInt_token1]; ACTIONS 409 [aux_sym__literalInt_token2;
   aux_sym__literalInt_token3]; ACTIONS 407 [aux_sym__literalFloat_token1];
   ACTIONS 411 [aux_sym_ppUsesBlock_token1]; ACTIONS 413 [sym_kAdd; sym_kSub];
   ACTIONS 415 [sym_kAt]; ACTIONS 417 [sym_kTrue; sym_kFalse]; ACTIONS 419 [sym_labelNumber];
   ACTIONS 3 [sym__space]; ACTIONS 5 [sym_ppDirective]; ACTIONS 3 [sym_comment];
   ACTIONS 417 [sym_ppFragmentExpr]; ACTIONS 397 [sym_ppFragmentStmt];
   ACTIONS 403 [sym__literalStringMultiline]; ACTIONS 421 [sym_identifier];
   ACTIONS 423 [sym_kSpecialize]; ACTIONS 425 [sym_kOn]; ACTIONS 427 [sym_kAsm];
   ACTIONS 429 [sym_kBegin]; ACTIONS 431 [sym_kCase]; ACTIONS 433 [sym_kConst];
   ACTIONS 493 [sym_kEnd]; ACTIONS 437 [sym_kFor]; ACTIONS 439 [sym_kFunction];
   ACTIONS 441 [sym_kGoto]; ACTIONS 443 [sym_kIf]; ACTIONS 445 [sym_kInherited];
   ACTIONS 417 [sym_kNil]; ACTIONS 415 [sym_kNot]; ACTIONS 439 [sym_kProcedure];
   ACTIONS 447 [sym_kRaise]; ACTIONS 449 [sym_kRepeat]; ACTIONS 451 [sym_kString];
   ACTIONS 453 [sym_kTry]; ACTIONS 455 [sym_kVar]; ACTIONS 457 [sym_kWhile];
   ACTIONS 459 [sym_kWith]].

(** State 77. *)
Definition ts_parse_table_77 : parse_row :=
  [STATE 6213 [sym_if]; STATE 6327 [sym_ifElse; sym_while; sym_repeat; sym_for; sym_foreach];
   STATE 12104 [sym_exceptionHandler]; STATE 6327 [sym_try; sym_case; sym_block; sym_asm;
   sym_with; sym_raise; sym_statement; sym_goto; sym__statement]; STATE 15991 [sym_ifTr;
   sym_ifElseTr; sym_whileTr; sym_repeatTr; sym_forTr; sym_foreachTr];
   STATE 12526 [sym_exceptionHandlerTr]; STATE 15668 [sym__exceptionHandlersTr];
   STATE 15991 [sym_tryTr; sym_caseTr]; STATE 14251 [sym_blockTr]; STATE 15991 [sym_asmTr;
   sym_withTr; sym_raiseTr; sym_statementTr; sym_gotoTr; sym__statementTr];
   STATE 13915 [sym_assignment]; STATE 11785 [sym_varAssignDef]; STATE 13915 [sym_varDef;
   sym_constDef]; STATE 6166 [sym_label]; STATE 15991 [sym__statementsTr];
   STATE 15668 [sym_statementsTr]; STATE 8019 [sym__expr; sym_exprConditional];
   STATE 7478 [sym__ref; sym_lambda; sym_inherited; sym_exprDot; sym_exprDeref; sym_exprAs;
   sym_exprTpl; sym_exprSubscript; sym_exprCall]; STATE 8019 [sym_exprBinary; sym_exprUnary];
   STATE 7478 [sym_exprParens; sym_exprBrackets; sym__literal; sym_literalString];
   STATE 6664 [sym__literalString; sym_literalChar]; STATE 7478 [sym_literalNumber];
   STATE 7742 [sym__literalInt; sym__literalFloat]; STATE 1380 [sym__ppIf];
   STATE 6327 [sym__ppStatementBlock]; STATE 11840 [aux_sym_labeledStatement_repeat1];
   STATE 12159 [aux_sym__exceptionHandlersTr_repeat1]; STATE 863 [aux_sym__statementsTr_repeat1];
   STATE 6664 [aux_sym_literalString_repeat1]; ACTIONS 397 [anon_sym_SEMI];
   ACTIONS 399 [anon_sym_LBRACK]; ACTIONS 401 [anon_sym_LPAREN];
   ACTIONS 403 [aux_sym__literalString_token1]; ACTIONS 405 [anon_sym_POUND];
   ACTIONS 407 [aux_sym__literalInt_token1]; ACTIONS 409 [aux_sym__literalInt_token2;
   aux_sym__literalInt_token3]; ACTIONS 407 [aux_sym__literalFloat_token1];
   ACTIONS 411 [aux_sym_ppUsesBlock_token1]; ACTIONS 413 [sym_kAdd; sym_kSub];
   ACTIONS 415 [sym_kAt]; ACTIONS 417 [sym_kTrue; sym_kFalse]; ACTIONS 419 [sym_labelNumber];
   ACTIONS 3 [sym__space]; ACTIONS 5 [sym_ppDirective]; ACTIONS 3 [sym_comment];
   ACTIONS 417 [sym_ppFragmentExpr]; ACTIONS 397 [sym_ppFragmentStmt];
   ACTIONS 403 [sym__literalStringMultiline]; ACTIONS 421 [sym_identifier];
   ACTIONS 423 [sym_kSpecialize]; ACTIONS 425 [sym_kOn]; ACTIONS 427 [sym_kAsm];
   ACTIONS 429 [sym_kBegin]; ACTIONS 431 [sym_kCase]; ACTIONS 433 [sym_kConst];
   ACTIONS 495 [sym_kEnd]; ACTIONS 437 [sym_kFor]; ACTIONS 439 [sym_kFunction];
   ACTIONS 441 [sym_kGoto]; ACTIONS 443 [sym_kIf]; ACTIONS 445 [sym_kInherited];
   ACTIONS 417 [sym_kNil]; ACTIONS 415 [sym_kNot]; ACTIONS 439 [sym_kProcedure];
   ACTIONS 447 [sym_kRaise]; ACTIONS 449 [sym_kRepeat]; ACTIONS 451 [sym_kString];
   ACTIONS 453 [sym_kTry]; ACTIONS 455 [sym_kVar]; ACTIONS 457 [sym_kWhile];
   ACTIONS 459 [sym_kWith]].

(** State 78. *)
Definition ts_parse_table_78 : parse_row :=
  [STATE 6213 [sym_if]; STATE 6327 [sym_ifElse; sym_while; sym_repeat; sym_for; sym_foreach];
   STATE 12104 [sym_exceptionHandler]; STATE 6327 [sym_try; sym_case; sym_block; sym_asm;
   sym_with; sym_raise; sym_statement; sym_goto; sym__statement]; STATE 15991 [sym_ifTr;
   sym_ifElseTr; sym_whileTr; sym_repeatTr; sym_forTr; sym_foreachTr];
   STATE 12526 [sym_exceptionHandlerTr]; STATE 14460 [sym__exceptionHandlersTr];
   STATE 15991 [sym_tryTr; sym_caseTr]; STATE 14251 [sym_blockTr]; STATE 15991 [sym_asmTr;
   sym_withTr; sym_raiseTr; sym_statementTr; sym_gotoTr; sym__statementTr];
   STATE 13915 [sym_assignment]; STATE 11785 [sym_varAssignDef]; STATE 13915 [sym_varDef;
   sym_constDef]; STATE 6166 [sym_label]; STATE 15991 [sym__statementsTr];
   STATE 14460 [sym_statementsTr]; STATE 8019 [sym__expr; sym_exprConditional];
   STATE 7478 [sym__ref; sym_lambda; sym_inherited; sym_exprDot; sym_exprDeref; sym_exprAs;
   sym_exprTpl; sym_exprSubscript; sym_exprCall]; STATE 8019 [sym_exprBinary; sym_exprUnary];
   STATE 7478 [sym_exprParens; sym_exprBrackets; sym__literal; sym_literalString];
   STATE 6664 [sym__literalString; sym_literalChar]; STATE 7478 [sym_literalNumber];
   STATE 7742 [sym__literalInt; sym__literalFloat]; STATE 1380 [sym__ppIf];
   STATE 6327 [sym__ppStatementBlock]; STATE 11840 [aux_sym_labeledStatement_repeat1];
   STATE 12159 [aux_sym__exceptionHandlersTr_repeat1]; STATE 863 [aux_sym__statementsTr_repeat1];
   STATE 6664 [aux_sym_literalString_repeat1]; ACTIONS 397 [anon_sym_SEMI];
   ACTIONS 399 [anon_sym_LBRACK]; ACTIONS 401 [anon_sym_LPAREN];
   ACTIONS 403 [aux_sym__literalString_token1]; ACTIONS 405 [anon_sym_POUND];
   ACTIONS 407 [aux_sym__literalInt_token1]; ACTIONS 409 [aux_sym__literalInt_token2;
   aux_sym__literalInt_token3]; ACTIONS 407 [aux_sym__literalFloat_token1];
   ACTIONS 411 [aux_sym_ppUsesBlock_token1]; ACTIONS 413 [sym_kAdd; sym_kSub];
   ACTIONS 415 [sym_kAt]; ACTIONS 417 [sym_kTrue; sym_kFalse]; ACTIONS 419 [sym_labelNumber];
   ACTIONS 3 [sym__space]; ACTIONS 5 [sym_ppDirective]; ACTIONS 3 [sym_comment];
   ACTIONS 417 [sym_ppFragmentExpr]; ACTIONS 397 [sym_ppFragmentStmt];
   ACTIONS 403 [sym__literalStringMultiline]; ACTIONS 421 [sym_identifier];
   ACTIONS 423 [sym_kSpecialize]; ACTIONS 425 [sym_kOn]; ACTIONS 427 [sym_kAsm];
   ACTIONS 429 [sym_kBegin]; ACTIONS 431 [sym_kCase]; ACTIONS 433 [sym_kConst];
   ACTIONS 497 [sym_kEnd]; ACTIONS 437 [sym_kFor]; ACTIONS 439 [sym_kFunction];
   ACTIONS 441 [sym_kGoto]; ACTIONS 443 [sym_kIf]; ACTIONS 445 [sym_kInherited];
   ACTIONS 417 [sym_kNil]; ACTIONS 415 [sym_kNot]; ACTIONS 439 [sym_kProcedure];
   ACTIONS 447 [sym_kRaise]; ACTIONS 449 [sym_kRepeat]; ACTIONS 451 [sym_kString];
   ACTIONS 453 [sym_kTry]; ACTIONS 455 [sym_kVar]; ACTIONS 457 [sym_kWhile];
   ACTIONS 459 [sym_kWith]].

(** State 79. *)
Definition ts_parse_table_79 : parse_row :=
  [STATE 6213 [sym_if]; STATE 6327 [sym_ifElse; sym_while; sym_repeat; sym_for; sym_foreach];
   STATE 12104 [sym_exceptionHandler]; STATE 6327 [sym_try; sym_case; sym_block; sym_asm;
   sym_with; sym_raise; sym_statement; sym_goto; sym__statement]; STATE 15991 [sym_ifTr;
   sym_ifElseTr; sym_whileTr; sym_repeatTr; sym_forTr; sym_foreachTr];
   STATE 12526 [sym_exceptionHandlerTr]; STATE 14323 [sym__exceptionHandlersTr];
   STATE 15991 [sym_tryTr; sym_caseTr]; STATE 14251 [sym_blockTr]; STATE 15991 [sym_asmTr;
   sym_withTr; sym_raiseTr; sym_statementTr; sym_gotoTr; sym__statementTr];
   STATE 13915 [sym_assignment]; STATE 11785 [sym_varAssignDef]; STATE 13915 [sym_varDef;
   sym_constDef]; STATE 6166 [sym_label]; STATE 15991 [sym__statementsTr];
   STATE 14323 [sym_statementsTr]; STATE 8019 [sym__expr; sym_exprConditional];
   STATE 7478 [sym__ref; sym_lambda; sym_inherited; sym_exprDot; sym_exprDeref; sym_exprAs;
   sym_exprTpl; sym_exprSubscript; sym_exprCall]; STATE 8019 [sym_exprBinary; sym_exprUnary];
   STATE 7478 [sym_exprParens; sym_exprBrackets; sym__literal; sym_literalString];
   STATE 6664 [sym__literalString; sym_literalChar]; STATE 7478 [sym_literalNumber];
   STATE 7742 [sym__literalInt; sym__literalFloat]; STATE 1380 [sym__ppIf];
   STATE 6327 [sym__ppStatementBlock]; STATE 11840 [aux_sym_labeledStatement_repeat1];
   STATE 12159 [aux_sym__exceptionHandlersTr_repeat1]; STATE 863 [aux_sym__statementsTr_repeat1];
   STATE 6664 [aux_sym_literalString_repeat1]; ACTIONS 397 [anon_sym_SEMI];
   ACTIONS 399 [anon_sym_LBRACK]; ACTIONS 401 [anon_sym_LPAREN];
   ACTIONS 403 [aux_sym__literalString_token1]; ACTIONS 405 [anon_sym_POUND];
   ACTIONS 407 [aux_sym__literalInt_token1]; ACTIONS 409 [aux_sym__literalInt_token2;
   aux_sym__literalInt_token3]; ACTIONS 407 [aux_sym__literalFloat_token1];
   ACTIONS 411 [aux_sym_ppUsesBlock_token1]; ACTIONS 413 [sym_kAdd; sym_kSub];
   ACTIONS 415 [sym_kAt]; ACTIONS 417 [sym_kTrue; sym_kFalse]; ACTIONS 419 [sym_labelNumber];
   ACTIONS 3 [sym__space]; ACTIONS 5 [sym_ppDirective]; ACTIONS 3 [sym_comment];
   ACTIONS 417 [sym_ppFragmentExpr]; ACTIONS 397 [sym_ppFragmentStmt];
   ACTIONS 403 [sym__literalStringMultiline]; ACTIONS 421 [sym_identifier];
   ACTIONS 423 [sym_kSpecialize]; ACTIONS 425 [sym_kOn]; ACTIONS 427 [sym_kAsm];
   ACTIONS 429 [sym_kBegin]; ACTIONS 431 [sym_kCase]; ACTIONS 433 [sym_kConst];
   ACTIONS 499 [sym_kEnd]; ACTIONS 437 [sym_kFor]; ACTIONS 439 [sym_kFunction];
   ACTIONS 441 [sym_kGoto]; ACTIONS 443 [sym_kIf]; ACTIONS 445 [sym_kInherited];
   ACTIONS 417 [sym_kNil]; ACTIONS 415 [sym_kNot]; ACTIONS 439 [sym_kProcedure];
   ACTIONS 447 [sym_kRaise]; ACTIONS 449 [sym_kRepeat]; ACTIONS 451 [sym_kString];
   ACTIONS 453 [sym_kTry]; ACTIONS 455 [sym_kVar]; ACTIONS 457 [sym_kWhile];
   ACTIONS 459 [sym_kWith]].

(** State 80. *)
Definition ts_parse_table_80 : parse_row :=
  [STATE 6213 [sym_if]; STATE 6327 [sym_ifElse; sym_while; sym_repeat; sym_for; sym_foreach];
   STATE 12104 [sym_exceptionHandler]; STATE 6327 [sym_try; sym_case; sym_block; sym_asm;
   sym_with; sym_raise; sym_statement; sym_goto; sym__statement]; STATE 15991 [sym_ifTr;
   sym_ifElseTr; sym_whileTr; sym_repeatTr; sym_forTr; sym_foreachTr];
   STATE 12526 [sym_exceptionHandlerTr]; STATE 14462 [sym__exceptionHandlersTr];
   STATE 15991 [sym_tryTr; sym_caseTr]; STATE 14251 [sym_blockTr]; STATE 15991 [sym_asmTr;
   sym_withTr; sym_raiseTr; sym_statementTr; sym_gotoTr; sym__statementTr];
   STATE 13915 [sym_assignment]; STATE 11785 [sym_varAssignDef]; STATE 13915 [sym_varDef;
   sym_constDef]; STATE 6166 [sym_label]; STATE 15991 [sym__statementsTr];
   STATE 14462 [sym_statementsTr]; STATE 8019 [sym__expr; sym_exprConditional];
   STATE 7478 [sym__ref; sym_lambda; sym_inherited; sym_exprDot; sym_exprDeref; sym_exprAs;
   sym_exprTpl; sym_exprSubscript; sym_exprCall]; STATE 8019 [sym_exprBinary; sym_exprUnary];
   STATE 7478 [sym_exprParens; sym_exprBrackets; sym__literal; sym_literalString];
   STATE 6664 [sym__literalString; sym_literalChar]; STATE 7478 [sym_literalNumber];
   STATE 7742 [sym__literalInt; sym__literalFloat]; STATE 1380 [sym__ppIf];
   STATE 6327 [sym__ppStatementBlock]; STATE 11840 [aux_sym_labeledStatement_repeat1];
   STATE 12159 [aux_sym__exceptionHandlersTr_repeat1]; STATE 863 [aux_sym__statementsTr_repeat1];
   STATE 6664 [aux_sym_literalString_repeat1]; ACTIONS 397 [anon_sym_SEMI];
   ACTIONS 399 [anon_sym_LBRACK]; ACTIONS 401 [anon_sym_LPAREN];
   ACTIONS 403 [aux_sym__literalString_token1]; ACTIONS 405 [anon_sym_POUND];
   ACTIONS 407 [aux_sym__literalInt_token1]; ACTIONS 409 [aux_sym__literalInt_token2;
   aux_sym__literalInt_token3]; ACTIONS 407 [aux_sym__literalFloat_token1];
   ACTIONS 411 [aux_sym_ppUsesBlock_token1]; ACTIONS 413 [sym_kAdd; sym_kSub];
   ACTIONS 415 [sym_kAt]; ACTIONS 417 [sym_kTrue; sym_kFalse]; ACTIONS 419 [sym_labelNumber];
   ACTIONS 3 [sym__space]; ACTIONS 5 [sym_ppDirective]; ACTIONS 3 [sym_comment];
   ACTIONS 417 [sym_ppFragmentExpr]; ACTIONS 397 [sym_ppFragmentStmt];
   ACTIONS 403 [sym__literalStringMultiline]; ACTIONS 421 [sym_identifier];
   ACTIONS 423 [sym_kSpecialize]; ACTIONS 425 [sym_kOn]; ACTIONS 427 [sym_kAsm];
   ACTIONS 429 [sym_kBegin]; ACTIONS 431 [sym_kCase]; ACTIONS 433 [sym_kConst];
   ACTIONS 501 [sym_kEnd]; ACTIONS 437 [sym_kFor]; ACTIONS 439 [sym_kFunction];
   ACTIONS 441 [sym_kGoto]; ACTIONS 443 [sym_kIf]; ACTIONS 445 [sym_kInherited];
   ACTIONS 417 [sym_kNil]; ACTIONS 415 [sym_kNot]; ACTIONS 439 [sym_kProcedure];
   ACTIONS 447 [sym_kRaise]; ACTIONS 449 [sym_kRepeat]; ACTIONS 451 [sym_kString];
   ACTIONS 453 [sym_kTry]; ACTIONS 455 [sym_kVar]; ACTIONS 457 [sym_kWhile];
   ACTIONS 459 [sym_kWith]].

(** State 81. *)
Definition ts_parse_table_81 : parse_row :=
  [STATE 6213 [sym_if]; STATE 6327 [sym_ifElse; sym_while; sym_repeat; sym_for; sym_foreach];
   STATE 12104 [sym_exceptionHandler]; STATE 6327 [sym_try; sym_case; sym_block; sym_asm;
   sym_with; sym_raise; sym_statement; sym_goto; sym__statement]; STATE 15991 [sym_ifTr;
   sym_ifElseTr; sym_whileTr; sym_repeatTr; sym_forTr; sym_foreachTr];
   STATE 12526 [sym_exceptionHandlerTr]; STATE 14899 [sym__exceptionHandlersTr];
   STATE 15991 [sym_tryTr; sym_caseTr]; STATE 14251 [sym_blockTr]; STATE 15991 [sym_asmTr;
   sym_withTr; sym_raiseTr; sym_statementTr; sym_gotoTr; sym__statementTr];
   STATE 13915 [sym_assignment]; STATE 11785 [sym_varAssignDef]; STATE 13915 [sym_varDef;
   sym_constDef]; STATE 6166 [sym_label]; STATE 15991 [sym__statementsTr];
   STATE 14899 [sym_statementsTr]; STATE 8019 [sym__expr; sym_exprConditional];
   STATE 7478 [sym__ref; sym_lambda; sym_inherited; sym_exprDot; sym_exprDeref; sym_exprAs;
   sym_exprTpl; sym_exprSubscript; sym_exprCall]; STATE 8019 [sym_exprBinary; sym_exprUnary];
   STATE 7478 [sym_exprParens; sym_exprBrackets; sym__literal; sym_literalString];
   STATE 6664 [sym__literalString; sym_literalChar]; STATE 7478 [sym_literalNumber];
   STATE 7742 [sym__literalInt; sym__literalFloat]; STATE 1380 [sym__ppIf];
   STATE 6327 [sym__ppStatementBlock]; STATE 11840 [aux_sym_labeledStatement_repeat1];
   STATE 12159 [aux_sym__exceptionHandlersTr_repeat1]; STATE 863 [aux_sym__statementsTr_repeat1];
   STATE 6664 [aux_sym_literalString_repeat1]; ACTIONS 397 [anon_sym_SEMI];
   ACTIONS 399 [anon_sym_LBRACK]; ACTIONS 401 [anon_sym_LPAREN];
   ACTIONS 403 [aux_sym__literalString_token1]; ACTIONS 405 [anon_sym_POUND];
   ACTIONS 407 [aux_sym__literalInt_token1]; ACTIONS 409 [aux_sym__literalInt_token2;
   aux_sym__literalInt_token3]; ACTIONS 407 [aux_sym__literalFloat_token1];
   ACTIONS 411 [aux_sym_ppUsesBlock_token1]; ACTIONS 413 [sym_kAdd; sym_kSub];
   ACTIONS 415 [sym_kAt]; ACTIONS 417 [sym_kTrue; sym_kFalse]; ACTIONS 419 [sym_labelNumber];
   ACTIONS 3 [sym__space]; ACTIONS 5 [sym_ppDirective]; ACTIONS 3 [sym_comment];
   ACTIONS 417 [sym_ppFragmentExpr]; ACTIONS 397 [sym_ppFragmentStmt];
   ACTIONS 403 [sym__literalStringMultiline]; ACTIONS 421 [sym_identifier];
   ACTIONS 423 [sym_kSpecialize]; ACTIONS 425 [sym_kOn]; ACTIONS 427 [sym_kAsm];
   ACTIONS 429 [sym_kBegin]; ACTIONS 431 [sym_kCase]; ACTIONS 433 [sym_kConst];
   ACTIONS 503 [sym_kEnd]; ACTIONS 437 [sym_kFor]; ACTIONS 439 [sym_kFunction];
   ACTIONS 441 [sym_kGoto]; ACTIONS 443 [sym_kIf]; ACTIONS 445 [sym_kInherited];
   ACTIONS 417 [sym_kNil]; ACTIONS 415 [sym_kNot]; ACTIONS 439 [sym_kProcedure];
   ACTIONS 447 [sym_kRaise]; ACTIONS 449 [sym_kRepeat]; ACTIONS 451 [sym_kString];
   ACTIONS 453 [sym_kTry]; ACTIONS 455 [sym_kVar]; ACTIONS 457 [sym_kWhile];
   ACTIONS 459 [sym_kWith]].

(** State 82. *)
Definition ts_parse_table_82 : parse_row :=
  [STATE 6213 [sym_if]; STATE 6327 [sym_ifElse; sym_while; sym_repeat; sym_for; sym_foreach];
   STATE 12104 [sym_exceptionHandler]; STATE 6327 [sym_try; sym_case; sym_block; sym_asm;
   sym_with; sym_raise; sym_statement; sym_goto; sym__statement]; STATE 15991 [sym_ifTr;
   sym_ifElseTr; sym_whileTr; sym_repeatTr; sym_forTr; sym_foreachTr];
   STATE 12526 [sym_exceptionHandlerTr]; STATE 14979 [sym__exceptionHandlersTr];
   STATE 15991 [sym_tryTr; sym_caseTr]; STATE 14251 [sym_blockTr]; STATE 15991 [sym_asmTr;
   sym_withTr; sym_raiseTr; sym_statementTr; sym_gotoTr; sym__statementTr];
   STATE 13915 [sym_assignment]; STATE 11785 [sym_varAssignDef]; STATE 13915 [sym_varDef;
   sym_constDef]; STATE 6166 [sym_label]; STATE 15991 [sym__statementsTr];
   STATE 14979 [sym_statementsTr]; STATE 8019 [sym__expr; sym_exprConditional];
   STATE 7478 [sym__ref; sym_lambda; sym_inherited; sym_exprDot; sym_exprDeref; sym_exprAs;
   sym_exprTpl; sym_exprSubscript; sym_exprCall]; STATE 8019 [sym_exprBinary; sym_exprUnary];
   STATE 7478 [sym_exprParens; sym_exprBrackets; sym__literal; sym_literalString];
   STATE 6664 [sym__literalString; sym_literalChar]; STATE 7478 [sym_literalNumber];
   STATE 7742 [sym__literalInt; sym__literalFloat]; STATE 1380 [sym__ppIf];
   STATE 6327 [sym__ppStatementBlock]; STATE 11840 [aux_sym_labeledStatement_repeat1];
   STATE 12159 [aux_sym__exceptionHandlersTr_repeat1]; STATE 863 [aux_sym__statementsTr_repeat1];
   STATE 6664 [aux_sym_literalString_repeat1]; ACTIONS 397 [anon_sym_SEMI];
   ACTIONS 399 [anon_sym_LBRACK]; ACTIONS 401 [anon_sym_LPAREN];
   ACTIONS 403 [aux_sym__literalString_token1]; ACTIONS 405 [anon_sym_POUND];
   ACTIONS 407 [aux_sym__literalInt_token1]; ACTIONS 409 [aux_sym__literalInt_token2;
   aux_sym__literalInt_token3]; ACTIONS 407 [aux_sym__literalFloat_token1];
   ACTIONS 411 [aux_sym_ppUsesBlock_token1]; ACTIONS 413 [sym_kAdd; sym_kSub];
   ACTIONS 415 [sym_kAt]; ACTIONS 417 [sym_kTrue; sym_kFalse]; ACTIONS 419 [sym_labelNumber];
   ACTIONS 3 [sym__space]; ACTIONS 5 [sym_ppDirective]; ACTIONS 3 [sym_comment];
   ACTIONS 417 [sym_ppFragmentExpr]; ACTIONS 397 [sym_ppFragmentStmt];
   ACTIONS 403 [sym__literalStringMultiline]; ACTIONS 421 [sym_identifier];
   ACTIONS 423 [sym_kSpecialize]; ACTIONS 425 [sym_kOn]; ACTIONS 427 [sym_kAsm];
   ACTIONS 429 [sym_kBegin]; ACTIONS 431 [sym_kCase]; ACTIONS 433 [sym_kConst];
   ACTIONS 505 [sym_kEnd]; ACTIONS 437 [sym_kFor]; ACTIONS 439 [sym_kFunction];
   ACTIONS 441 [sym_kGoto]; ACTIONS 443 [sym_kIf]; ACTIONS 445 [sym_kInherited];
   ACTIONS 417 [sym_kNil]; ACTIONS 415 [sym_kNot]; ACTIONS 439 [sym_kProcedure];
   ACTIONS 447 [sym_kRaise]; ACTIONS 449 [sym_kRepeat]; ACTIONS 451 [sym_kString];
   ACTIONS 453 [sym_kTry]; ACTIONS 455 [sym_kVar]; ACTIONS 457 [sym_kWhile];
   ACTIONS 459 [sym_kWith]].

(** State 83. *)
Definition ts_parse_table_83 : parse_row :=
  [STATE 6213 [sym_if]; STATE 6327 [sym_ifElse; sym_while; sym_repeat; sym_for; sym_foreach];
   STATE 12104 [sym_exceptionHandler]; STATE 6327 [sym_try; sym_case; sym_block; sym_asm;
   sym_with; sym_raise; sym_statement; sym_goto; sym__statement]; STATE 15991 [sym_ifTr;
   sym_ifElseTr; sym_whileTr; sym_repeatTr; sym_forTr; sym_foreachTr];
   STATE 12526 [sym_exceptionHandlerTr]; STATE 14913 [sym__exceptionHandlersTr];
   STATE 15991 [sym_tryTr; sym_caseTr]; STATE 14251 [sym_blockTr]; STATE 15991 [sym_asmTr;
   sym_withTr; sym_raiseTr; sym_statementTr; sym_gotoTr; sym__statementTr];
   STATE 13915 [sym_assignment]; STATE 11785 [sym_varAssignDef]; STATE 13915 [sym_varDef;
   sym_constDef]; STATE 6166 [sym_label]; STATE 15991 [sym__statementsTr];
   STATE 14913 [sym_statementsTr]; STATE 8019 [sym__expr; sym_exprConditional];
   STATE 7478 [sym__ref; sym_lambda; sym_inherited; sym_exprDot; sym_exprDeref; sym_exprAs;
   sym_exprTpl; sym_exprSubscript; sym_exprCall]; STATE 8019 [sym_exprBinary; sym_exprUnary];
   STATE 7478 [sym_exprParens; sym_exprBrackets; sym__literal; sym_literalString];
   STATE 6664 [sym__literalString; sym_literalChar]; STATE 7478 [sym_literalNumber];
   STATE 7742 [sym__literalInt; sym__literalFloat]; STATE 1380 [sym__ppIf];
   STATE 6327 [sym__ppStatementBlock]; STATE 11840 [aux_sym_labeledStatement_repeat1];
   STATE 12159 [aux_sym__exceptionHandlersTr_repeat1]; STATE 863 [aux_sym__statementsTr_repeat1];
   STATE 6664 [aux_sym_literalString_repeat1]; ACTIONS 397 [anon_sym_SEMI];
   ACTIONS 399 [anon_sym_LBRACK]; ACTIONS 401 [anon_sym_LPAREN];
   ACTIONS 403 [aux_sym__literalString_token1]; ACTIONS 405 [anon_sym_POUND];
   ACTIONS 407 [aux_sym__literalInt_token1]; ACTIONS 409 [aux_sym__literalInt_token2;
   aux_sym__literalInt_token3]; ACTIONS 407 [aux_sym__literalFloat_token1];
   ACTIONS 411 [aux_sym_ppUsesBlock_token1]; ACTIONS 413 [sym_kAdd; sym_kSub];
   ACTIONS 415 [sym_kAt]; ACTIONS 417 [sym_kTrue; sym_kFalse]; ACTIONS 419 [sym_labelNumber];
   ACTIONS 3 [sym__space]; ACTIONS 5 [sym_ppDirective]; ACTIONS 3 [sym_comment];
   ACTIONS 417 [sym_ppFragmentExpr]; ACTIONS 397 [sym_ppFragmentStmt];
   ACTIONS 403 [sym__literalStringMultiline]; ACTIONS 421 [sym_identifier];
   ACTIONS 423 [sym_kSpecialize]; ACTIONS 425 [sym_kOn]; ACTIONS 427 [sym_kAsm];
   ACTIONS 429 [sym_kBegin]; ACTIONS 431 [sym_kCase]; ACTIONS 433 [sym_kConst];
   ACTIONS 507 [sym_kEnd]; ACTIONS 437 [sym_kFor]; ACTIONS 439 [sym_kFunction];
   ACTIONS 441 [sym_kGoto]; ACTIONS 443 [sym_kIf]; ACTIONS 445 [sym_kInherited];
   ACTIONS 417 [sym_kNil]; ACTIONS 415 [sym_kNot]; ACTIONS 439 [sym_kProcedure];
   ACTIONS 447 [sym_kRaise]; ACTIONS 449 [sym_kRepeat]; ACTIONS 451 [sym_kString];
   ACTIONS 453 [sym_kTry]; ACTIONS 455 [sym_kVar]; ACTIONS 457 [sym_kWhile];
   ACTIONS 459 [sym_kWith]].

(** State 84. *)
Definition ts_parse_table_84 : parse_row :=
  [STATE 6213 [sym_if]; STATE 6327 [sym_ifElse; sym_while; sym_repeat; sym_for; sym_foreach];
   STATE 12104 [sym_exceptionHandler]; STATE 6327 [sym_try; sym_case; sym_block; sym_asm;
   sym_with; sym_raise; sym_statement; sym_goto; sym__statement]; STATE 15991 [sym_ifTr;
   sym_ifElseTr; sym_whileTr; sym_repeatTr; sym_forTr; sym_foreachTr];
   STATE 12526 [sym_exceptionHandlerTr]; STATE 15249 [sym__exceptionHandlersTr];
   STATE 15991 [sym_tryTr; sym_caseTr]; STATE 14251 [sym_blockTr]; STATE 15991 [sym_asmTr;
   sym_withTr; sym_raiseTr; sym_statementTr; sym_gotoTr; sym__statementTr];
   STATE 13915 [sym_assignment]; STATE 11785 [sym_varAssignDef]; STATE 13915 [sym_varDef;
   sym_constDef]; STATE 6166 [sym_label]; STATE 15991 [sym__statementsTr];
   STATE 15249 [sym_statementsTr]; STATE 8019 [sym__expr; sym_exprConditional];
   STATE 7478 [sym__ref; sym_lambda; sym_inherited; sym_exprDot; sym_exprDeref; sym_exprAs;
   sym_exprTpl; sym_exprSubscript; sym_exprCall]; STATE 8019 [sym_exprBinary; sym_exprUnary];
   STATE 7478 [sym_exprParens; sym_exprBrackets; sym__literal; sym_literalString];
   STATE 6664 [sym__literalString; sym_literalChar]; STATE 7478 [sym_literalNumber];
   STATE 7742 [sym__literalInt; sym__literalFloat]; STATE 1380 [sym__ppIf];
   STATE 6327 [sym__ppStatementBlock]; STATE 11840 [aux_sym_labeledStatement_repeat1];
   STATE 12159 [aux_sym__exceptionHandlersTr_repeat1]; STATE 863 [aux_sym__statementsTr_repeat1];
   STATE 6664 [aux_sym_literalString_repeat1]; ACTIONS 397 [anon_sym_SEMI];
   ACTIONS 399 [anon_sym_LBRACK]; ACTIONS 401 [anon_sym_LPAREN];
   ACTIONS 403 [aux_sym__literalString_token1]; ACTIONS 405 [anon_sym_POUND];
   ACTIONS 407 [aux_sym__literalInt_token1]; ACTIONS 409 [aux_sym__literalInt_token2;
   aux_sym__literalInt_token3]; ACTIONS 407 [aux_sym__literalFloat_token1];
   ACTIONS 411 [aux_sym_ppUsesBlock_token1]; ACTIONS 413 [sym_kAdd; sym_kSub];
   ACTIONS 415 [sym_kAt]; ACTIONS 417 [sym_kTrue; sym_kFalse]; ACTIONS 419 [sym_labelNumber];
   ACTIONS 3 [sym__space]; ACTIONS 5 [sym_ppDirective]; ACTIONS 3 [sym_comment];
   ACTIONS 417 [sym_ppFragmentExpr]; ACTIONS 397 [sym_ppFragmentStmt];
   ACTIONS 403 [sym__literalStringMultiline]; ACTIONS 421 [sym_identifier];
   ACTIONS 423 [sym_kSpecialize]; ACTIONS 425 [sym_kOn]; ACTIONS 427 [sym_kAsm];
   ACTIONS 429 [sym_kBegin]; ACTIONS 431 [sym_kCase]; ACTIONS 433 [sym_kConst];
   ACTIONS 509 [sym_kEnd]; ACTIONS 437 [sym_kFor]; ACTIONS 439 [sym_kFunction];
   ACTIONS 441 [sym_kGoto]; ACTIONS 443 [sym_kIf]; ACTIONS 445 [sym_kInherited];
   ACTIONS 417 [sym_kNil]; ACTIONS 415 [sym_kNot]; ACTIONS 439 [sym_kProcedure];
   ACTIONS 447 [sym_kRaise]; ACTIONS 449 [sym_kRepeat]; ACTIONS 451 [sym_kString];
   ACTIONS 453 [sym_kTry]; ACTIONS 455 [sym_kVar]; ACTIONS 457 [sym_kWhile];
   ACTIONS 459 [sym_kWith]].

(** State 85. *)
Definition ts_parse_table_85 : parse_row :=
  [STATE 6213 [sym_if]; STATE 6327 [sym_ifElse; sym_while; sym_repeat; sym_for; sym_foreach];
   STATE 12104 [sym_exceptionHandler]; STATE 6327 [sym_try; sym_case; sym_block; sym_asm;
   sym_with; sym_raise; sym_statement; sym_goto; sym__statement]; STATE 15991 [sym_ifTr;
   sym_ifElseTr; sym_whileTr; sym_repeatTr; sym_forTr; sym_foreachTr];
   STATE 12526 [sym_exceptionHandlerTr]; STATE 15364 [sym__exceptionHandlersTr];
   STATE 15991 [sym_tryTr; sym_caseTr]; STATE 14251 [sym_blockTr]; STATE 15991 [sym_asmTr;
   sym_withTr; sym_raiseTr; sym_statementTr; sym_gotoTr; sym__statementTr];
   STATE 13915 [sym_assignment]; STATE 11785 [sym_varAssignDef]; STATE 13915 [sym_varDef;
   sym_constDef]; STATE 6166 [sym_label]; STATE 15991 [sym__statementsTr];
   STATE 15364 [sym_statementsTr]; STATE 8019 [sym__expr; sym_exprConditional];
   STATE 7478 [sym__ref; sym_lambda; sym_inherited; sym_exprDot; sym_exprDeref; sym_exprAs;
   sym_exprTpl; sym_exprSubscript; sym_exprCall]; STATE 8019 [sym_exprBinary; sym_exprUnary];
   STATE 7478 [sym_exprParens; sym_exprBrackets; sym__literal; sym_literalString];
   STATE 6664 [sym__literalString; sym_literalChar]; STATE 7478 [sym_literalNumber];
   STATE 7742 [sym__literalInt; sym__literalFloat]; STATE 1380 [sym__ppIf];
   STATE 6327 [sym__ppStatementBlock]; STATE 11840 [aux_sym_labeledStatement_repeat1];
   STATE 12159 [aux_sym__exceptionHandlersTr_repeat1]; STATE 863 [aux_sym__statementsTr_repeat1];
   STATE 6664 [aux_sym_literalString_repeat1]; ACTIONS 397 [anon_sym_SEMI];
   ACTIONS 399 [anon_sym_LBRACK]; ACTIONS 401 [anon_sym_LPAREN];
   ACTIONS 403 [aux_sym__literalString_token1]; ACTIONS 405 [anon_sym_POUND];
   ACTIONS 407 [aux_sym__literalInt_token1]; ACTIONS 409 [aux_sym__literalInt_token2;
   aux_sym__literalInt_token3]; ACTIONS 407 [aux_sym__literalFloat_token1];
   ACTIONS 411 [aux_sym_ppUsesBlock_token1]; ACTIONS 413 [sym_kAdd; sym_kSub];
   ACTIONS 415 [sym_kAt]; ACTIONS 417 [sym_kTrue; sym_kFalse]; ACTIONS 419 [sym_labelNumber];
   ACTIONS 3 [sym__space]; ACTIONS 5 [sym_ppDirective]; ACTIONS 3 [sym_comment];
   ACTIONS 417 [sym_ppFragmentExpr]; ACTIONS 397 [sym_ppFragmentStmt];
   ACTIONS 403 [sym__literalStringMultiline]; ACTIONS 421 [sym_identifier];
   ACTIONS 423 [sym_kSpecialize]; ACTIONS 425 [sym_kOn]; ACTIONS 427 [sym_kAsm];
   ACTIONS 429 [sym_kBegin]; ACTIONS 431 [sym_kCase]; ACTIONS 433 [sym_kConst];
   ACTIONS 511 [sym_kEnd]; ACTIONS 437 [sym_kFor]; ACTIONS 439 [sym_kFunction];
   ACTIONS 441 [sym_kGoto]; ACTIONS 443 [sym_kIf]; ACTIONS 445 [sym_kInherited];
   ACTIONS 417 [sym_kNil]; ACTIONS 415 [sym_kNot]; ACTIONS 439 [sym_kProcedure];
   ACTIONS 447 [sym_kRaise]; ACTIONS 449 [sym_kRepeat]; ACTIONS 451 [sym_kString];
   ACTIONS 453 [sym_kTry]; ACTIONS 455 [sym_kVar]; ACTIONS 457 [sym_kWhile];
   ACTIONS 459 [sym_kWith]].

(** State 86. *)
Definition ts_parse_table_86 : parse_row :=
  [STATE 6213 [sym_if]; STATE 6327 [sym_ifElse; sym_while; sym_repeat; sym_for; sym_foreach];
   STATE 12104 [sym_exceptionHandler]; STATE 6327 [sym_try; sym_case; sym_block; sym_asm;
   sym_with; sym_raise; sym_statement; sym_goto; sym__statement]; STATE 15991 [sym_ifTr;
   sym_ifElseTr; sym_whileTr; sym_repeatTr; sym_forTr; sym_foreachTr];
   STATE 12526 [sym_exceptionHandlerTr]; STATE 15002 [sym__exceptionHandlersTr];
   STATE 15991 [sym_tryTr; sym_caseTr]; STATE 14251 [sym_blockTr]; STATE 15991 [sym_asmTr;
   sym_withTr; sym_raiseTr; sym_statementTr; sym_gotoTr; sym__statementTr];
   STATE 13915 [sym_assignment]; STATE 11785 [sym_varAssignDef]; STATE 13915 [sym_varDef;
   sym_constDef]; STATE 6166 [sym_label]; STATE 15991 [sym__statementsTr];
   STATE 15002 [sym_statementsTr]; STATE 8019 [sym__expr; sym_exprConditional];
   STATE 7478 [sym__ref; sym_lambda; sym_inherited; sym_exprDot; sym_exprDeref; sym_exprAs;
   sym_exprTpl; sym_exprSubscript; sym_exprCall]; STATE 8019 [sym_exprBinary; sym_exprUnary];
   STATE 7478 [sym_exprParens; sym_exprBrackets; sym__literal; sym_literalString];
   STATE 6664 [sym__literalString; sym_literalChar]; STATE 7478 [sym_literalNumber];
   STATE 7742 [sym__literalInt; sym__literalFloat]; STATE 1380 [sym__ppIf];
   STATE 6327 [sym__ppStatementBlock]; STATE 11840 [aux_sym_labeledStatement_repeat1];
   STATE 12159 [aux_sym__exceptionHandlersTr_repeat1]; STATE 863 [aux_sym__statementsTr_repeat1];
   STATE 6664 [aux_sym_literalString_repeat1]; ACTIONS 397 [anon_sym_SEMI];
   ACTIONS 399 [anon_sym_LBRACK]; ACTIONS 401 [anon_sym_LPAREN];
   ACTIONS 403 [aux_sym__literalString_token1]; ACTIONS 405 [anon_sym_POUND];
   ACTIONS 407 [aux_sym__literalInt_token1]; ACTIONS 409 [aux_sym__literalInt_token2;
   aux_sym__literalInt_token3]; ACTIONS 407 [aux_sym__literalFloat_token1];
   ACTIONS 411 [aux_sym_ppUsesBlock_token1]; ACTIONS 413 [sym_kAdd; sym_kSub];
   ACTIONS 415 [sym_kAt]; ACTIONS 417 [sym_kTrue; sym_kFalse]; ACTIONS 419 [sym_labelNumber];
   ACTIONS 3 [sym__space]; ACTIONS 5 [sym_ppDirective]; ACTIONS 3 [sym_comment];
   ACTIONS 417 [sym_ppFragmentExpr]; ACTIONS 397 [sym_ppFragmentStmt];
   ACTIONS 403 [sym__literalStringMultiline]; ACTIONS 421 [sym_identifier];
   ACTIONS 423 [sym_kSpecialize]; ACTIONS 425 [sym_kOn]; ACTIONS 427 [sym_kAsm];
   ACTIONS 429 [sym_kBegin]; ACTIONS 431 [sym_kCase]; ACTIONS 433 [sym_kConst];
   ACTIONS 513 [sym_kEnd]; ACTIONS 437 [sym_kFor]; ACTIONS 439 [sym_kFunction];
   ACTIONS 441 [sym_kGoto]; ACTIONS 443 [sym_kIf]; ACTIONS 445 [sym_kInherited];
   ACTIONS 417 [sym_kNil]; ACTIONS 415 [sym_kNot]; ACTIONS 439 [sym_kProcedure];
   ACTIONS 447 [sym_kRaise]; ACTIONS 449 [sym_kRepeat]; ACTIONS 451 [sym_kString];
   ACTIONS 453 [sym_kTry]; ACTIONS 455 [sym_kVar]; ACTIONS 457 [sym_kWhile];
   ACTIONS 459 [sym_kWith]].

(** State 87. *)
Definition ts_parse_table_87 : parse_row :=
  [STATE 6213 [sym_if]; STATE 6327 [sym_ifElse; sym_while; sym_repeat; sym_for; sym_foreach];
   STATE 12104 [sym_exceptionHandler]; STATE 6327 [sym_try; sym_case; sym_block; sym_asm;
   sym_with; sym_raise; sym_statement; sym_goto; sym__statement]; STATE 15991 [sym_ifTr;
   sym_ifElseTr; sym_whileTr; sym_repeatTr; sym_forTr; sym_foreachTr];
   STATE 12526 [sym_exceptionHandlerTr]; STATE 15574 [sym__exceptionHandlersTr];
   STATE 15991 [sym_tryTr; sym_caseTr]; STATE 14251 [sym_blockTr]; STATE 15991 [sym_asmTr;
   sym_withTr; sym_raiseTr; sym_statementTr; sym_gotoTr; sym__statementTr];
   STATE 13915 [sym_assignment]; STATE 11785 [sym_varAssignDef]; STATE 13915 [sym_varDef;
   sym_constDef]; STATE 6166 [sym_label]; STATE 15991 [sym__statementsTr];
   STATE 15574 [sym_statementsTr]; STATE 8019 [sym__expr; sym_exprConditional];
   STATE 7478 [sym__ref; sym_lambda; sym_inherited; sym_exprDot; sym_exprDeref; sym_exprAs;
   sym_exprTpl; sym_exprSubscript; sym_exprCall]; STATE 8019 [sym_exprBinary; sym_exprUnary];
   STATE 7478 [sym_exprParens; sym_exprBrackets; sym__literal; sym_literalString];
   STATE 6664 [sym__literalString; sym_literalChar]; STATE 7478 [sym_literalNumber];
   STATE 7742 [sym__literalInt; sym__literalFloat]; STATE 1380 [sym__ppIf];
   STATE 6327 [sym__ppStatementBlock]; STATE 11840 [aux_sym_labeledStatement_repeat1];
   STATE 12159 [aux_sym__exceptionHandlersTr_repeat1]; STATE 863 [aux_sym__statementsTr_repeat1];
   STATE 6664 [aux_sym_literalString_repeat1]; ACTIONS 397 [anon_sym_SEMI];
   ACTIONS 399 [anon_sym_LBRACK]; ACTIONS 401 [anon_sym_LPAREN];
   ACTIONS 403 [aux_sym__literalString_token1]; ACTIONS 405 [anon_sym_POUND];
   ACTIONS 407 [aux_sym__literalInt_token1]; ACTIONS 409 [aux_sym__literalInt_token2;
   aux_sym__literalInt_token3]; ACTIONS 407 [aux_sym__literalFloat_token1];
   ACTIONS 411 [aux_sym_ppUsesBlock_token1]; ACTIONS 413 [sym_kAdd; sym_kSub];
   ACTIONS 415 [sym_kAt]; ACTIONS 417 [sym_kTrue; sym_kFalse]; ACTIONS 419 [sym_labelNumber];
   ACTIONS 3 [sym__space]; ACTIONS 5 [sym_ppDirective]; ACTIONS 3 [sym_comment];
   ACTIONS 417 [sym_ppFragmentExpr]; ACTIONS 397 [sym_ppFragmentStmt];
   ACTIONS 403 [sym__literalStringMultiline]; ACTIONS 421 [sym_identifier];
   ACTIONS 423 [sym_kSpecialize]; ACTIONS 425 [sym_kOn]; ACTIONS 427 [sym_kAsm];
   ACTIONS 429 [sym_kBegin]; ACTIONS 431 [sym_kCase]; ACTIONS 433 [sym_kConst];
   ACTIONS 515 [sym_kEnd]; ACTIONS 437 [sym_kFor]; ACTIONS 439 [sym_kFunction];
   ACTIONS 441 [sym_kGoto]; ACTIONS 443 [sym_kIf]; ACTIONS 445 [sym_kInherited];
   ACTIONS 417 [sym_kNil]; ACTIONS 415 [sym_kNot]; ACTIONS 439 [sym_kProcedure];
   ACTIONS 447 [sym_kRaise]; ACTIONS 449 [sym_kRepeat]; ACTIONS 451 [sym_kString];
   ACTIONS 453 [sym_kTry]; ACTIONS 455 [sym_kVar]; ACTIONS 457 [sym_kWhile];
   ACTIONS 459 [sym_kWith]].

(** State 88. *)
Definition ts_parse_table_88 : parse_row :=
  [STATE 6213 [sym_if]; STATE 6327 [sym_ifElse; sym_while; sym_repeat; sym_for; sym_foreach];
   STATE 12104 [sym_exceptionHandler]; STATE 6327 [sym_try; sym_case; sym_block; sym_asm;
   sym_with; sym_raise; sym_statement; sym_goto; sym__statement]; STATE 15991 [sym_ifTr;
   sym_ifElseTr; sym_whileTr; sym_repeatTr; sym_forTr; sym_foreachTr];
   STATE 12526 [sym_exceptionHandlerTr]; STATE 15657 [sym__exceptionHandlersTr];
   STATE 15991 [sym_tryTr; sym_caseTr]; STATE 14251 [sym_blockTr]; STATE 15991 [sym_asmTr;
   sym_withTr; sym_raiseTr; sym_statementTr; sym_gotoTr; sym__statementTr];
   STATE 13915 [sym_assignment]; STATE 11785 [sym_varAssignDef]; STATE 13915 [sym_varDef;
   sym_constDef]; STATE 6166 [sym_label]; STATE 15991 [sym__statementsTr];
   STATE 15657 [sym_statementsTr]; STATE 8019 [sym__expr; sym_exprConditional];
   STATE 7478 [sym__ref; sym_lambda; sym_inherited; sym_exprDot; sym_exprDeref; sym_exprAs;
   sym_exprTpl; sym_exprSubscript; sym_exprCall]; STATE 8019 [sym_exprBinary; sym_exprUnary];
   STATE 7478 [sym_exprParens; sym_exprBrackets; sym__literal; sym_literalString];
   STATE 6664 [sym__literalString; sym_literalChar]; STATE 7478 [sym_literalNumber];
   STATE 7742 [sym__literalInt; sym__literalFloat]; STATE 1380 [sym__ppIf];
   STATE 6327 [sym__ppStatementBlock]; STATE 11840 [aux_sym_labeledStatement_repeat1];
   STATE 12159 [aux_sym__exceptionHandlersTr_repeat1]; STATE 863 [aux_sym__statementsTr_repeat1];
   STATE 6664 [aux_sym_literalString_repeat1]; ACTIONS 397 [anon_sym_SEMI];
   ACTIONS 399 [anon_sym_LBRACK]; ACTIONS 401 [anon_sym_LPAREN];
   ACTIONS 403 [aux_sym__literalString_token1]; ACTIONS 405 [anon_sym_POUND];
   ACTIONS 407 [aux_sym__literalInt_token1]; ACTIONS 409 [aux_sym__literalInt_token2;
   aux_sym__literalInt_token3]; ACTIONS 407 [aux_sym__literalFloat_token1];
   ACTIONS 411 [aux_sym_ppUsesBlock_token1]; ACTIONS 413 [sym_kAdd; sym_kSub];
   ACTIONS 415 [sym_kAt]; ACTIONS 417 [sym_kTrue; sym_kFalse]; ACTIONS 419 [sym_labelNumber];
   ACTIONS 3 [sym__space]; ACTIONS 5 [sym_ppDirective]; ACTIONS 3 [sym_comment];
   ACTIONS 417 [sym_ppFragmentExpr]; ACTIONS 397 [sym_ppFragmentStmt];
   ACTIONS 403 [sym__literalStringMultiline]; ACTIONS 421 [sym_identifier];
   ACTIONS 423 [sym_kSpecialize]; ACTIONS 425 [sym_kOn]; ACTIONS 427 [sym_kAsm];
   ACTIONS 429 [sym_kBegin]; ACTIONS 431 [sym_kCase]; ACTIONS 433 [sym_kConst];
   ACTIONS 517 [sym_kEnd]; ACTIONS 437 [sym_kFor]; ACTIONS 439 [sym_kFunction];
   ACTIONS 441 [sym_kGoto]; ACTIONS 443 [sym_kIf]; ACTIONS 445 [sym_kInherited];
   ACTIONS 417 [sym_kNil]; ACTIONS 415 [sym_kNot]; ACTIONS 439 [sym_kProcedure];
   ACTIONS 447 [sym_kRaise]; ACTIONS 449 [sym_kRepeat]; ACTIONS 451 [sym_kString];
   ACTIONS 453 [sym_kTry]; ACTIONS 455 [sym_kVar]; ACTIONS 457 [sym_kWhile];
   ACTIONS 459 [sym_kWith]].

(** State 89. *)
Definition ts_parse_table_89 : parse_row :=
  [STATE 6213 [sym_if]; STATE 6327 [sym_ifElse; sym_while; sym_repeat; sym_for; sym_foreach];
   STATE 12104 [sym_exceptionHandler]; STATE 6327 [sym_try; sym_case; sym_block; sym_asm;
   sym_with; sym_raise; sym_statement; sym_goto; sym__statement]; STATE 15991 [sym_ifTr;
   sym_ifElseTr; sym_whileTr; sym_repeatTr; sym_forTr; sym_foreachTr];
   STATE 12526 [sym_exceptionHandlerTr]; STATE 15921 [sym__exceptionHandlersTr];
   STATE 15991 [sym_tryTr; sym_caseTr]; STATE 14251 [sym_blockTr]; STATE 15991 [sym_asmTr;
   sym_withTr; sym_raiseTr; sym_statementTr; sym_gotoTr; sym__statementTr];
   STATE 13915 [sym_assignment]; STATE 11785 [sym_varAssignDef]; STATE 13915 [sym_varDef;
   sym_constDef]; STATE 6166 [sym_label]; STATE 15991 [sym__statementsTr];
   STATE 15921 [sym_statementsTr]; STATE 8019 [sym__expr; sym_exprConditional];
   STATE 7478 [sym__ref; sym_lambda; sym_inherited; sym_exprDot; sym_exprDeref; sym_exprAs;
   sym_exprTpl; sym_exprSubscript; sym_exprCall]; STATE 8019 [sym_exprBinary; sym_exprUnary];
   STATE 7478 [sym_exprParens; sym_exprBrackets; sym__literal; sym_literalString];
   STATE 6664 [sym__literalString; sym_literalChar]; STATE 7478 [sym_literalNumber];
   STATE 7742 [sym__literalInt; sym__literalFloat]; STATE 1380 [sym__ppIf];
   STATE 6327 [sym__ppStatementBlock]; STATE 11840 [aux_sym_labeledStatement_repeat1];
   STATE 12159 [aux_sym__exceptionHandlersTr_repeat1]; STATE 863 [aux_sym__statementsTr_repeat1];
   STATE 6664 [aux_sym_literalString_repeat1]; ACTIONS 397 [anon_sym_SEMI];
   ACTIONS 399 [anon_sym_LBRACK]; ACTIONS 401 [anon_sym_LPAREN];
   ACTIONS 403 [aux_sym__literalString_token1]; ACTIONS 405 [anon_sym_POUND];
   ACTIONS 407 [aux_sym__literalInt_token1]; ACTIONS 409 [aux_sym__literalInt_token2;
   aux_sym__literalInt_token3]; ACTIONS 407 [aux_sym__literalFloat_token1];
   ACTIONS 411 [aux_sym_ppUsesBlock_token1]; ACTIONS 413 [sym_kAdd; sym_kSub];
   ACTIONS 415 [sym_kAt]; ACTIONS 417 [sym_kTrue; sym_kFalse]; ACTIONS 419 [sym_labelNumber];
   ACTIONS 3 [sym__space]; ACTIONS 5 [sym_ppDirective]; ACTIONS 3 [sym_comment];
   ACTIONS 417 [sym_ppFragmentExpr]; ACTIONS 397 [sym_ppFragmentStmt];
   ACTIONS 403 [sym__literalStringMultiline]; ACTIONS 421 [sym_identifier];
   ACTIONS 423 [sym_kSpecialize]; ACTIONS 425 [sym_kOn]; ACTIONS 427 [sym_kAsm];
   ACTIONS 429 [sym_kBegin]; ACTIONS 431 [sym_kCase]; ACTIONS 433 [sym_kConst];
   ACTIONS 519 [sym_kEnd]; ACTIONS 437 [sym_kFor]; ACTIONS 439 [sym_kFunction];
   ACTIONS 441 [sym_kGoto]; ACTIONS 443 [sym_kIf]; ACTIONS 445 [sym_kInherited];
   ACTIONS 417 [sym_kNil]; ACTIONS 415 [sym_kNot]; ACTIONS 439 [sym_kProcedure];
   ACTIONS 447 [sym_kRaise]; ACTIONS 449 [sym_kRepeat]; ACTIONS 451 [sym_kString];
   ACTIONS 453 [sym_kTry]; ACTIONS 455 [sym_kVar]; ACTIONS 457 [sym_kWhile];
   ACTIONS 459 [sym_kWith]].

(** State 90. *)
Definition ts_parse_table_90 : parse_row :=
  [STATE 6213 [sym_if]; STATE 6327 [sym_ifElse; sym_while; sym_repeat; sym_for; sym_foreach];
   STATE 12104 [sym_exceptionHandler]; STATE 6327 [sym_try; sym_case; sym_block; sym_asm;
   sym_with; sym_raise; sym_statement; sym_goto; sym__statement]; STATE 15991 [sym_ifTr;
   sym_ifElseTr; sym_whileTr; sym_repeatTr; sym_forTr; sym_foreachTr];
   STATE 12526 [sym_exceptionHandlerTr]; STATE 16002 [sym__exceptionHandlersTr];
   STATE 15991 [sym_tryTr; sym_caseTr]; STATE 14251 [sym_blockTr]; STATE 15991 [sym_asmTr;
   sym_withTr; sym_raiseTr; sym_statementTr; sym_gotoTr; sym__statementTr];
   STATE 13915 [sym_assignment]; STATE 11785 [sym_varAssignDef]; STATE 13915 [sym_varDef;
   sym_constDef]; STATE 6166 [sym_label]; STATE 15991 [sym__statementsTr];
   STATE 16002 [sym_statementsTr]; STATE 8019 [sym__expr; sym_exprConditional];
   STATE 7478 [sym__ref; sym_lambda; sym_inherited; sym_exprDot; sym_exprDeref; sym_exprAs;
   sym_exprTpl; sym_exprSubscript; sym_exprCall]; STATE 8019 [sym_exprBinary; sym_exprUnary];
   STATE 7478 [sym_exprParens; sym_exprBrackets; sym__literal; sym_literalString];
   STATE 6664 [sym__literalString; sym_literalChar]; STATE 7478 [sym_literalNumber];
   STATE 7742 [sym__literalInt; sym__literalFloat]; STATE 1380 [sym__ppIf];
   STATE 6327 [sym__ppStatementBlock]; STATE 11840 [aux_sym_labeledStatement_repeat1];
   STATE 12159 [aux_sym__exceptionHandlersTr_repeat1]; STATE 863 [aux_sym__statementsTr_repeat1];
   STATE 6664 [aux_sym_literalString_repeat1]; ACTIONS 397 [anon_sym_SEMI];
   ACTIONS 399 [anon_sym_LBRACK]; ACTIONS 401 [anon_sym_LPAREN];
   ACTIONS 403 [aux_sym__literalString_token1]; ACTIONS 405 [anon_sym_POUND];
   ACTIONS 407 [aux_sym__literalInt_token1]; ACTIONS 409 [aux_sym__literalInt_token2;
   aux_sym__literalInt_token3]; ACTIONS 407 [aux_sym__literalFloat_token1];
   ACTIONS 411 [aux_sym_ppUsesBlock_token1]; ACTIONS 413 [sym_kAdd; sym_kSub];
   ACTIONS 415 [sym_kAt]; ACTIONS 417 [sym_kTrue; sym_kFalse]; ACTIONS 419 [sym_labelNumber];
   ACTIONS 3 [sym__space]; ACTIONS 5 [sym_ppDirective]; ACTIONS 3 [sym_comment];
   ACTIONS 417 [sym_ppFragmentExpr]; ACTIONS 397 [sym_ppFragmentStmt];
   ACTIONS 403 [sym__literalStringMultiline]; ACTIONS 421 [sym_identifier];
   ACTIONS 423 [sym_kSpecialize]; ACTIONS 425 [sym_kOn]; ACTIONS 427 [sym_kAsm];
   ACTIONS 429 [sym_kBegin]; ACTIONS 431 [sym_kCase]; ACTIONS 433 [sym_kConst];
   ACTIONS 521 [sym_kEnd]; ACTIONS 437 [sym_kFor]; ACTIONS 439 [sym_kFunction];
   ACTIONS 441 [sym_kGoto]; ACTIONS 443 [sym_kIf]; ACTIONS 445 [sym_kInherited];
   ACTIONS 417 [sym_kNil]; ACTIONS 415 [sym_kNot]; ACTIONS 439 [sym_kProcedure];
   ACTIONS 447 [sym_kRaise]; ACTIONS 449 [sym_kRepeat]; ACTIONS 451 [sym_kString];
   ACTIONS 453 [sym_kTry]; ACTIONS 455 [sym_kVar]; ACTIONS 457 [sym_kWhile];
   ACTIONS 459 [sym_kWith]].

(** State 91. *)
Definition ts_parse_table_91 : parse_row :=
  [STATE 6213 [sym_if]; STATE 6327 [sym_ifElse; sym_while; sym_repeat; sym_for; sym_foreach];
   STATE 12104 [sym_exceptionHandler]; STATE 6327 [sym_try; sym_case; sym_block; sym_asm;
   sym_with; sym_raise; sym_statement; sym_goto; sym__statement]; STATE 15991 [sym_ifTr;
   sym_ifElseTr; sym_whileTr; sym_repeatTr; sym_forTr; sym_foreachTr];
   STATE 12526 [sym_exceptionHandlerTr]; STATE 14275 [sym__exceptionHandlersTr];
   STATE 15991 [sym_tryTr; sym_caseTr]; STATE 14251 [sym_blockTr]; STATE 15991 [sym_asmTr;
   sym_withTr; sym_raiseTr; sym_statementTr; sym_gotoTr; sym__statementTr];
   STATE 13915 [sym_assignment]; STATE 11785 [sym_varAssignDef]; STATE 13915 [sym_varDef;
   sym_constDef]; STATE 6166 [sym_label]; STATE 15991 [sym__statementsTr];
   STATE 14275 [sym_statementsTr]; STATE 8019 [sym__expr; sym_exprConditional];
   STATE 7478 [sym__ref; sym_lambda; sym_inherited; sym_exprDot; sym_exprDeref; sym_exprAs;
   sym_exprTpl; sym_exprSubscript; sym_exprCall]; STATE 8019 [sym_exprBinary; sym_exprUnary];
   STATE 7478 [sym_exprParens; sym_exprBrackets; sym__literal; sym_literalString];
   STATE 6664 [sym__literalString; sym_literalChar]; STATE 7478 [sym_literalNumber];
   STATE 7742 [sym__literalInt; sym__literalFloat]; STATE 1380 [sym__ppIf];
   STATE 6327 [sym__ppStatementBlock]; STATE 11840 [aux_sym_labeledStatement_repeat1];
   STATE 12159 [aux_sym__exceptionHandlersTr_repeat1]; STATE 863 [aux_sym__statementsTr_repeat1];
   STATE 6664 [aux_sym_literalString_repeat1]; ACTIONS 397 [anon_sym_SEMI];
   ACTIONS 399 [anon_sym_LBRACK]; ACTIONS 401 [anon_sym_LPAREN];
   ACTIONS 403 [aux_sym__literalString_token1]; ACTIONS 405 [anon_sym_POUND];
   ACTIONS 407 [aux_sym__literalInt_token1]; ACTIONS 409 [aux_sym__literalInt_token2;
   aux_sym__literalInt_token3]; ACTIONS 407 [aux_sym__literalFloat_token1];
   ACTIONS 411 [aux_sym_ppUsesBlock_token1]; ACTIONS 413 [sym_kAdd; sym_kSub];
   ACTIONS 415 [sym_kAt]; ACTIONS 417 [sym_kTrue; sym_kFalse]; ACTIONS 419 [sym_labelNumber];
   ACTIONS 3 [sym__space]; ACTIONS 5 [sym_ppDirective]; ACTIONS 3 [sym_comment];
   ACTIONS 417 [sym_ppFragmentExpr]; ACTIONS 397 [sym_ppFragmentStmt];
   ACTIONS 403 [sym__literalStringMultiline]; ACTIONS 421 [sym_identifier];
   ACTIONS 423 [sym_kSpecialize]; ACTIONS 425 [sym_kOn]; ACTIONS 427 [sym_kAsm];
   ACTIONS 429 [sym_kBegin]; ACTIONS 431 [sym_kCase]; ACTIONS 433 [sym_kConst];
   ACTIONS 523 [sym_kEnd]; ACTIONS 437 [sym_kFor]; ACTIONS 439 [sym_kFunction];
   ACTIONS 441 [sym_kGoto]; ACTIONS 443 [sym_kIf]; ACTIONS 445 [sym_kInherited];
   ACTIONS 417 [sym_kNil]; ACTIONS 415 [sym_kNot]; ACTIONS 439 [sym_kProcedure];
   ACTIONS 447 [sym_kRaise]; ACTIONS 449 [sym_kRepeat]; ACTIONS 451 [sym_kString];
   ACTIONS 453 [sym_kTry]; ACTIONS 455 [sym_kVar]; ACTIONS 457 [sym_kWhile];
   ACTIONS 459 [sym_kWith]].

(** State 92. *)
Definition ts_parse_table_92 : parse_row :=
  [STATE 6213 [sym_if]; STATE 6327 [sym_ifElse; sym_while; sym_repeat; sym_for; sym_foreach];
   STATE 12104 [sym_exceptionHandler]; STATE 6327 [sym_try; sym_case; sym_block; sym_asm;
   sym_with; sym_raise; sym_statement; sym_goto; sym__statement]; STATE 15991 [sym_ifTr;
   sym_ifElseTr; sym_whileTr; sym_repeatTr; sym_forTr; sym_foreachTr];
   STATE 12526 [sym_exceptionHandlerTr]; STATE 14342 [sym__exceptionHandlersTr];
   STATE 15991 [sym_tryTr; sym_caseTr]; STATE 14251 [sym_blockTr]; STATE 15991 [sym_asmTr;
   sym_withTr; sym_raiseTr; sym_statementTr; sym_gotoTr; sym__statementTr];
   STATE 13915 [sym_assignment]; STATE 11785 [sym_varAssignDef]; STATE 13915 [sym_varDef;
   sym_constDef]; STATE 6166 [sym_label]; STATE 15991 [sym__statementsTr];
   STATE 14342 [sym_statementsTr]; STATE 8019 [sym__expr; sym_exprConditional];
   STATE 7478 [sym__ref; sym_lambda; sym_inherited; sym_exprDot; sym_exprDeref; sym_exprAs;
   sym_exprTpl; sym_exprSubscript; sym_exprCall]; STATE 8019 [sym_exprBinary; sym_exprUnary];
   STATE 7478 [sym_exprParens; sym_exprBrackets; sym__literal; sym_literalString];
   STATE 6664 [sym__literalString; sym_literalChar]; STATE 7478 [sym_literalNumber];
   STATE 7742 [sym__literalInt; sym__literalFloat]; STATE 1380 [sym__ppIf];
   STATE 6327 [sym__ppStatementBlock]; STATE 11840 [aux_sym_labeledStatement_repeat1];
   STATE 12159 [aux_sym__exceptionHandlersTr_repeat1]; STATE 863 [aux_sym__statementsTr_repeat1];
   STATE 6664 [aux_sym_literalString_repeat1]; ACTIONS 397 [anon_sym_SEMI];
   ACTIONS 399 [anon_sym_LBRACK]; ACTIONS 401 [anon_sym_LPAREN];
   ACTIONS 403 [aux_sym__literalString_token1]; ACTIONS 405 [anon_sym_POUND];
   ACTIONS 407 [aux_sym__literalInt_token1]; ACTIONS 409 [aux_sym__literalInt_token2;
   aux_sym__literalInt_token3]; ACTIONS 407 [aux_sym__literalFloat_token1];
   ACTIONS 411 [aux_sym_ppUsesBlock_token1]; ACTIONS 413 [sym_kAdd; sym_kSub];
   ACTIONS 415 [sym_kAt]; ACTIONS 417 [sym_kTrue; sym_kFalse]; ACTIONS 419 [sym_labelNumber];
   ACTIONS 3 [sym__space]; ACTIONS 5 [sym_ppDirective]; ACTIONS 3 [sym_comment];
   ACTIONS 417 [sym_ppFragmentExpr]; ACTIONS 397 [sym_ppFragmentStmt];
   ACTIONS 403 [sym__literalStringMultiline]; ACTIONS 421 [sym_identifier];
   ACTIONS 423 [sym_kSpecialize]; ACTIONS 425 [sym_kOn]; ACTIONS 427 [sym_kAsm];
   ACTIONS 429 [sym_kBegin]; ACTIONS 431 [sym_kCase]; ACTIONS 433 [sym_kConst];
   ACTIONS 525 [sym_kEnd]; ACTIONS 437 [sym_kFor]; ACTIONS 439 [sym_kFunction];
   ACTIONS 441 [sym_kGoto]; ACTIONS 443 [sym_kIf]; ACTIONS 445 [sym_kInherited];
   ACTIONS 417 [sym_kNil]; ACTIONS 415 [sym_kNot]; ACTIONS 439 [sym_kProcedure];
   ACTIONS 447 [sym_kRaise]; ACTIONS 449 [sym_kRepeat]; ACTIONS 451 [sym_kString];
   ACTIONS 453 [sym_kTry]; ACTIONS 455 [sym_kVar]; ACTIONS 457 [sym_kWhile];
   ACTIONS 459 [sym_kWith]].

(** State 93. *)
Definition ts_parse_table_93 : parse_row :=
  [STATE 6213 [sym_if]; STATE 6327 [sym_ifElse; sym_while; sym_repeat; sym_for; sym_foreach];
   STATE 12104 [sym_exceptionHandler]; STATE 6327 [sym_try; sym_case; sym_block; sym_asm;
   sym_with; sym_raise; sym_statement; sym_goto; sym__statement]; STATE 15991 [sym_ifTr;
   sym_ifElseTr; sym_whileTr; sym_repeatTr; sym_forTr; sym_foreachTr];
   STATE 12526 [sym_exceptionHandlerTr]; STATE 14507 [sym__exceptionHandlersTr];
   STATE 15991 [sym_tryTr; sym_caseTr]; STATE 14251 [sym_blockTr]; STATE 15991 [sym_asmTr;
   sym_withTr; sym_raiseTr; sym_statementTr; sym_gotoTr; sym__statementTr];
   STATE 13915 [sym_assignment]; STATE 11785 [sym_varAssignDef]; STATE 13915 [sym_varDef;
   sym_constDef]; STATE 6166 [sym_label]; STATE 15991 [sym__statementsTr];
   STATE 14507 [sym_statementsTr]; STATE 8019 [sym__expr; sym_exprConditional];
   STATE 7478 [sym__ref; sym_lambda; sym_inherited; sym_exprDot; sym_exprDeref; sym_exprAs;
   sym_exprTpl; sym_exprSubscript; sym_exprCall]; STATE 8019 [sym_exprBinary; sym_exprUnary];
   STATE 7478 [sym_exprParens; sym_exprBrackets; sym__literal; sym_literalString];
   STATE 6664 [sym__literalString; sym_literalChar]; STATE 7478 [sym_literalNumber];
   STATE 7742 [sym__literalInt; sym__literalFloat]; STATE 1380 [sym__ppIf];
   STATE 6327 [sym__ppStatementBlock]; STATE 11840 [aux_sym_labeledStatement_repeat1];
   STATE 12159 [aux_sym__exceptionHandlersTr_repeat1]; STATE 863 [aux_sym__statementsTr_repeat1];
   STATE 6664 [aux_sym_literalString_repeat1]; ACTIONS 397 [anon_sym_SEMI];
   ACTIONS 399 [anon_sym_LBRACK]; ACTIONS 401 [anon_sym_LPAREN];
   ACTIONS 403 [aux_sym__literalString_token1]; ACTIONS 405 [anon_sym_POUND];
   ACTIONS 407 [aux_sym__literalInt_token1]; ACTIONS 409 [aux_sym__literalInt_token2;
   aux_sym__literalInt_token3]; ACTIONS 407 [aux_sym__literalFloat_token1];
   ACTIONS 411 [aux_sym_ppUsesBlock_token1]; ACTIONS 413 [sym_kAdd; sym_kSub];
   ACTIONS 415 [sym_kAt]; ACTIONS 417 [sym_kTrue; sym_kFalse]; ACTIONS 419 [sym_labelNumber];
   ACTIONS 3 [sym__space]; ACTIONS 5 [sym_ppDirective]; ACTIONS 3 [sym_comment];
   ACTIONS 417 [sym_ppFragmentExpr]; ACTIONS 397 [sym_ppFragmentStmt];
   ACTIONS 403 [sym__literalStringMultiline]; ACTIONS 421 [sym_identifier];
   ACTIONS 423 [sym_kSpecialize]; ACTIONS 425 [sym_kOn]; ACTIONS 427 [sym_kAsm];
   ACTIONS 429 [sym_kBegin]; ACTIONS 431 [sym_kCase]; ACTIONS 433 [sym_kConst];
   ACTIONS 527 [sym_kEnd]; ACTIONS 437 [sym_kFor]; ACTIONS 439 [sym_kFunction];
   ACTIONS 441 [sym_kGoto]; ACTIONS 443 [sym_kIf]; ACTIONS 445 [sym_kInherited];
   ACTIONS 417 [sym_kNil]; ACTIONS 415 [sym_kNot]; ACTIONS 439 [sym_kProcedure];
   ACTIONS 447 [sym_kRaise]; ACTIONS 449 [sym_kRepeat]; ACTIONS 451 [sym_kString];
   ACTIONS 453 [sym_kTry]; ACTIONS 455 [sym_kVar]; ACTIONS 457 [sym_kWhile];
   ACTIONS 459 [sym_kWith]].

(** State 94. *)
Definition ts_parse_table_94 : parse_row :=
  [STATE 6213 [sym_if]; STATE 6327 [sym_ifElse; sym_while; sym_repeat; sym_for; sym_foreach];
   STATE 12104 [sym_exceptionHandler]; STATE 6327 [sym_try; sym_case; sym_block; sym_asm;
   sym_with; sym_raise; sym_statement; sym_goto; sym__statement]; STATE 15991 [sym_ifTr;
   sym_ifElseTr; sym_whileTr; sym_repeatTr; sym_forTr; sym_foreachTr];
   STATE 12526 [sym_exceptionHandlerTr]; STATE 14562 [sym__exceptionHandlersTr];
   STATE 15991 [sym_tryTr; sym_caseTr]; STATE 14251 [sym_blockTr]; STATE 15991 [sym_asmTr;
   sym_withTr; sym_raiseTr; sym_statementTr; sym_gotoTr; sym__statementTr];
   STATE 13915 [sym_assignment]; STATE 11785 [sym_varAssignDef]; STATE 13915 [sym_varDef;
   sym_constDef]; STATE 6166 [sym_label]; STATE 15991 [sym__statementsTr];
   STATE 14562 [sym_statementsTr]; STATE 8019 [sym__expr; sym_exprConditional];
   STATE 7478 [sym__ref; sym_lambda; sym_inherited; sym_exprDot; sym_exprDeref; sym_exprAs;
   sym_exprTpl; sym_exprSubscript; sym_exprCall]; STATE 8019 [sym_exprBinary; sym_exprUnary];
   STATE 7478 [sym_exprParens; sym_exprBrackets; sym__literal; sym_literalString];
   STATE 6664 [sym__literalString; sym_literalChar]; STATE 7478 [sym_literalNumber];
   STATE 7742 [sym__literalInt; sym__literalFloat]; STATE 1380 [sym__ppIf];
   STATE 6327 [sym__ppStatementBlock]; STATE 11840 [aux_sym_labeledStatement_repeat1];
   STATE 12159 [aux_sym__exceptionHandlersTr_repeat1]; STATE 863 [aux_sym__statementsTr_repeat1];
   STATE 6664 [aux_sym_literalString_repeat1]; ACTIONS 397 [anon_sym_SEMI];
   ACTIONS 399 [anon_sym_LBRACK]; ACTIONS 401 [anon_sym_LPAREN];
   ACTIONS 403 [aux_sym__literalString_token1]; ACTIONS 405 [anon_sym_POUND];
   ACTIONS 407 [aux_sym__literalInt_token1]; ACTIONS 409 [aux_sym__literalInt_token2;
   aux_sym__literalInt_token3]; ACTIONS 407 [aux_sym__literalFloat_token1];
   ACTIONS 411 [aux_sym_ppUsesBlock_token1]; ACTIONS 413 [sym_kAdd; sym_kSub];
   ACTIONS 415 [sym_kAt]; ACTIONS 417 [sym_kTrue; sym_kFalse]; ACTIONS 419 [sym_labelNumber];
   ACTIONS 3 [sym__space]; ACTIONS 5 [sym_ppDirective]; ACTIONS 3 [sym_comment];
   ACTIONS 417 [sym_ppFragmentExpr]; ACTIONS 397 [sym_ppFragmentStmt];
   ACTIONS 403 [sym__literalStringMultiline]; ACTIONS 421 [sym_identifier];
   ACTIONS 423 [sym_kSpecialize]; ACTIONS 425 [sym_kOn]; ACTIONS 427 [sym_kAsm];
   ACTIONS 429 [sym_kBegin]; ACTIONS 431 [sym_kCase]; ACTIONS 433 [sym_kConst];
   ACTIONS 529 [sym_kEnd]; ACTIONS 437 [sym_kFor]; ACTIONS 439 [sym_kFunction];
   ACTIONS 441 [sym_kGoto]; ACTIONS 443 [sym_kIf]; ACTIONS 445 [sym_kInherited];
   ACTIONS 417 [sym_kNil]; ACTIONS 415 [sym_kNot]; ACTIONS 439 [sym_kProcedure];
   ACTIONS 447 [sym_kRaise]; ACTIONS 449 [sym_kRepeat]; ACTIONS 451 [sym_kString];
   ACTIONS 453 [sym_kTry]; ACTIONS 455 [sym_kVar]; ACTIONS 457 [sym_kWhile];
   ACTIONS 459 [sym_kWith]].

(** State 95. *)
Definition ts_parse_table_95 : parse_row :=
  [STATE 6213 [sym_if]; STATE 6327 [sym_ifElse; sym_while; sym_repeat; sym_for; sym_foreach];
   STATE 12104 [sym_exceptionHandler]; STATE 6327 [sym_try; sym_case; sym_block; sym_asm;
   sym_with; sym_raise; sym_statement; sym_goto; sym__statement]; STATE 15991 [sym_ifTr;
   sym_ifElseTr; sym_whileTr; sym_repeatTr; sym_forTr; sym_foreachTr];
   STATE 12526 [sym_exceptionHandlerTr]; STATE 14752 [sym__exceptionHandlersTr];
   STATE 15991 [sym_tryTr; sym_caseTr]; STATE 14251 [sym_blockTr]; STATE 15991 [sym_asmTr;
   sym_withTr; sym_raiseTr; sym_statementTr; sym_gotoTr; sym__statementTr];
   STATE 13915 [sym_assignment]; STATE 11785 [sym_varAssignDef]; STATE 13915 [sym_varDef;
   sym_constDef]; STATE 6166 [sym_label]; STATE 15991 [sym__statementsTr];
   STATE 14752 [sym_statementsTr]; STATE 8019 [sym__expr; sym_exprConditional];
   STATE 7478 [sym__ref; sym_lambda; sym_inherited; sym_exprDot; sym_exprDeref; sym_exprAs;
   sym_exprTpl; sym_exprSubscript; sym_exprCall]; STATE 8019 [sym_exprBinary; sym_exprUnary];
   STATE 7478 [sym_exprParens; sym_exprBrackets; sym__literal; sym_literalString];
   STATE 6664 [sym__literalString; sym_literalChar]; STATE 7478 [sym_literalNumber];
   STATE 7742 [sym__literalInt; sym__literalFloat]; STATE 1380 [sym__ppIf];
   STATE 6327 [sym__ppStatementBlock]; STATE 11840 [aux_sym_labeledStatement_repeat1];
   STATE 12159 [aux_sym__exceptionHandlersTr_repeat1]; STATE 863 [aux_sym__statementsTr_repeat1];
   STATE 6664 [aux_sym_literalString_repeat1]; ACTIONS 397 [anon_sym_SEMI];
   ACTIONS 399 [anon_sym_LBRACK]; ACTIONS 401 [anon_sym_LPAREN];
   ACTIONS 403 [aux_sym__literalString_token1]; ACTIONS 405 [anon_sym_POUND];
   ACTIONS 407 [aux_sym__literalInt_token1]; ACTIONS 409 [aux_sym__literalInt_token2;
   aux_sym__literalInt_token3]; ACTIONS 407 [aux_sym__literalFloat_token1];
   ACTIONS 411 [aux_sym_ppUsesBlock_token1]; ACTIONS 413 [sym_kAdd; sym_kSub];
   ACTIONS 415 [sym_kAt]; ACTIONS 417 [sym_kTrue; sym_kFalse]; ACTIONS 419 [sym_labelNumber];
   ACTIONS 3 [sym__space]; ACTIONS 5 [sym_ppDirective]; ACTIONS 3 [sym_comment];
   ACTIONS 417 [sym_ppFragmentExpr]; ACTIONS 397 [sym_ppFragmentStmt];
   ACTIONS 403 [sym__literalStringMultiline]; ACTIONS 421 [sym_identifier];
   ACTIONS 423 [sym_kSpecialize]; ACTIONS 425 [sym_kOn]; ACTIONS 427 [sym_kAsm];
   ACTIONS 429 [sym_kBegin]; ACTIONS 431 [sym_kCase]; ACTIONS 433 [sym_kConst];
   ACTIONS 531 [sym_kEnd]; ACTIONS 437 [sym_kFor]; ACTIONS 439 [sym_kFunction];
   ACTIONS 441 [sym_kGoto]; ACTIONS 443 [sym_kIf]; ACTIONS 445 [sym_kInherited];
   ACTIONS 417 [sym_kNil]; ACTIONS 415 [sym_kNot]; ACTIONS 439 [sym_kProcedure];
   ACTIONS 447 [sym_kRaise]; ACTIONS 449 [sym_kRepeat]; ACTIONS 451 [sym_kString];
   ACTIONS 453 [sym_kTry]; ACTIONS 455 [sym_kVar]; ACTIONS 457 [sym_kWhile];
   ACTIONS 459 [sym_kWith]].

(** State 96. *)
Definition ts_parse_table_96 : parse_row :=
  [STATE 6213 [sym_if]; STATE 6327 [sym_ifElse; sym_while; sym_repeat; sym_for; sym_foreach];
   STATE 12104 [sym_exceptionHandler]; STATE 6327 [sym_try; sym_case; sym_block; sym_asm;
   sym_with; sym_raise; sym_statement; sym_goto; sym__statement]; STATE 15991 [sym_ifTr;
   sym_ifElseTr; sym_whileTr; sym_repeatTr; sym_forTr; sym_foreachTr];
   STATE 12526 [sym_exceptionHandlerTr]; STATE 14805 [sym__exceptionHandlersTr];
   STATE 15991 [sym_tryTr; sym_caseTr]; STATE 14251 [sym_blockTr]; STATE 15991 [sym_asmTr;
   sym_withTr; sym_raiseTr; sym_statementTr; sym_gotoTr; sym__statementTr];
   STATE 13915 [sym_assignment]; STATE 11785 [sym_varAssignDef]; STATE 13915 [sym_varDef;
   sym_constDef]; STATE 6166 [sym_label]; STATE 15991 [sym__statementsTr];
   STATE 14805 [sym_statementsTr]; STATE 8019 [sym__expr; sym_exprConditional];
   STATE 7478 [sym__ref; sym_lambda; sym_inherited; sym_exprDot; sym_exprDeref; sym_exprAs;
   sym_exprTpl; sym_exprSubscript; sym_exprCall]; STATE 8019 [sym_exprBinary; sym_exprUnary];
   STATE 7478 [sym_exprParens; sym_exprBrackets; sym__literal; sym_literalString];
   STATE 6664 [sym__literalString; sym_literalChar]; STATE 7478 [sym_literalNumber];
   STATE 7742 [sym__literalInt; sym__literalFloat]; STATE 1380 [sym__ppIf];
   STATE 6327 [sym__ppStatementBlock]; STATE 11840 [aux_sym_labeledStatement_repeat1];
   STATE 12159 [aux_sym__exceptionHandlersTr_repeat1]; STATE 863 [aux_sym__statementsTr_repeat1];
   STATE 6664 [aux_sym_literalString_repeat1]; ACTIONS 397 [anon_sym_SEMI];
   ACTIONS 399 [anon_sym_LBRACK]; ACTIONS 401 [anon_sym_LPAREN];
   ACTIONS 403 [aux_sym__literalString_token1]; ACTIONS 405 [anon_sym_POUND];
   ACTIONS 407 [aux_sym__literalInt_token1]; ACTIONS 409 [aux_sym__literalInt_token2;
   aux_sym__literalInt_token3]; ACTIONS 407 [aux_sym__literalFloat_token1];
   ACTIONS 411 [aux_sym_ppUsesBlock_token1]; ACTIONS 413 [sym_kAdd; sym_kSub];
   ACTIONS 415 [sym_kAt]; ACTIONS 417 [sym_kTrue; sym_kFalse]; ACTIONS 419 [sym_labelNumber];
   ACTIONS 3 [sym__space]; ACTIONS 5 [sym_ppDirective]; ACTIONS 3 [sym_comment];
   ACTIONS 417 [sym_ppFragmentExpr]; ACTIONS 397 [sym_ppFragmentStmt];
   ACTIONS 403 [sym__literalStringMultiline]; ACTIONS 421 [sym_identifier];
   ACTIONS 423 [sym_kSpecialize]; ACTIONS 425 [sym_kOn]; ACTIONS 427 [sym_kAsm];
   ACTIONS 429 [sym_kBegin]; ACTIONS 431 [sym_kCase]; ACTIONS 433 [sym_kConst];
   ACTIONS 533 [sym_kEnd]; ACTIONS 437 [sym_kFor]; ACTIONS 439 [sym_kFunction];
   ACTIONS 441 [sym_kGoto]; ACTIONS 443 [sym_kIf]; ACTIONS 445 [sym_kInherited];
   ACTIONS 417 [sym_kNil]; ACTIONS 415 [sym_kNot]; ACTIONS 439 [sym_kProcedure];
   ACTIONS 447 [sym_kRaise]; ACTIONS 449 [sym_kRepeat]; ACTIONS 451 [sym_kString];
   ACTIONS 453 [sym_kTry]; ACTIONS 455 [sym_kVar]; ACTIONS 457 [sym_kWhile];
   ACTIONS 459 [sym_kWith]].

(** State 97. *)
Definition ts_parse_table_97 : parse_row :=
  [STATE 6213 [sym_if]; STATE 6327 [sym_ifElse; sym_while; sym_repeat; sym_for; sym_foreach];
   STATE 12104 [sym_exceptionHandler]; STATE 6327 [sym_try; sym_case; sym_block; sym_asm;
   sym_with; sym_raise; sym_statement; sym_goto; sym__statement]; STATE 15991 [sym_ifTr;
   sym_ifElseTr; sym_whileTr; sym_repeatTr; sym_forTr; sym_foreachTr];
   STATE 12526 [sym_exceptionHandlerTr]; STATE 14924 [sym__exceptionHandlersTr];
   STATE 15991 [sym_tryTr; sym_caseTr]; STATE 14251 [sym_blockTr]; STATE 15991 [sym_asmTr;
   sym_withTr; sym_raiseTr; sym_statementTr; sym_gotoTr; sym__statementTr];
   STATE 13915 [sym_assignment]; STATE 11785 [sym_varAssignDef]; STATE 13915 [sym_varDef;
   sym_constDef]; STATE 6166 [sym_label]; STATE 15991 [sym__statementsTr];
   STATE 14924 [sym_statementsTr]; STATE 8019 [sym__expr; sym_exprConditional];
   STATE 7478 [sym__ref; sym_lambda; sym_inherited; sym_exprDot; sym_exprDeref; sym_exprAs;
   sym_exprTpl; sym_exprSubscript; sym_exprCall]; STATE 8019 [sym_exprBinary; sym_exprUnary];
   STATE 7478 [sym_exprParens; sym_exprBrackets; sym__literal; sym_literalString];
   STATE 6664 [sym__literalString; sym_literalChar]; STATE 7478 [sym_literalNumber];
   STATE 7742 [sym__literalInt; sym__literalFloat]; STATE 1380 [sym__ppIf];
   STATE 6327 [sym__ppStatementBlock]; STATE 11840 [aux_sym_labeledStatement_repeat1];
   STATE 12159 [aux_sym__exceptionHandlersTr_repeat1]; STATE 863 [aux_sym__statementsTr_repeat1];
   STATE 6664 [aux_sym_literalString_repeat1]; ACTIONS 397 [anon_sym_SEMI];
   ACTIONS 399 [anon_sym_LBRACK]; ACTIONS 401 [anon_sym_LPAREN];
   ACTIONS 403 [aux_sym__literalString_token1]; ACTIONS 405 [anon_sym_POUND];
   ACTIONS 407 [aux_sym__literalInt_token1]; ACTIONS 409 [aux_sym__literalInt_token2;
   aux_sym__literalInt_token3]; ACTIONS 407 [aux_sym__literalFloat_token1];
   ACTIONS 411 [aux_sym_ppUsesBlock_token1]; ACTIONS 413 [sym_kAdd; sym_kSub];
   ACTIONS 415 [sym_kAt]; ACTIONS 417 [sym_kTrue; sym_kFalse]; ACTIONS 419 [sym_labelNumber];
   ACTIONS 3 [sym__space]; ACTIONS 5 [sym_ppDirective]; ACTIONS 3 [sym_comment];
   ACTIONS 417 [sym_ppFragmentExpr]; ACTIONS 397 [sym_ppFragmentStmt];
   ACTIONS 403 [sym__literalStringMultiline]; ACTIONS 421 [sym_identifier];
   ACTIONS 423 [sym_kSpecialize]; ACTIONS 425 [sym_kOn]; ACTIONS 427 [sym_kAsm];
   ACTIONS 429 [sym_kBegin]; ACTIONS 431 [sym_kCase]; ACTIONS 433 [sym_kConst];
   ACTIONS 535 [sym_kEnd]; ACTIONS 437 [sym_kFor]; ACTIONS 439 [sym_kFunction];
   ACTIONS 441 [sym_kGoto]; ACTIONS 443 [sym_kIf]; ACTIONS 445 [sym_kInherited];
   ACTIONS 417 [sym_kNil]; ACTIONS 415 [sym_kNot]; ACTIONS 439 [sym_kProcedure];
   ACTIONS 447 [sym_kRaise]; ACTIONS 449 [sym_kRepeat]; ACTIONS 451 [sym_kString];
   ACTIONS 453 [sym_kTry]; ACTIONS 455 [sym_kVar]; ACTIONS 457 [sym_kWhile];
   ACTIONS 459 [sym_kWith]].

(** State 98. *)
Definition ts_parse_table_98 : parse_row :=
  [STATE 6213 [sym_if]; STATE 6327 [sym_ifElse; sym_while; sym_repeat; sym_for; sym_foreach];
   STATE 12104 [sym_exceptionHandler]; STATE 6327 [sym_try; sym_case; sym_block; sym_asm;
   sym_with; sym_raise; sym_statement; sym_goto; sym__statement]; STATE 15991 [sym_ifTr;
   sym_ifElseTr; sym_whileTr; sym_repeatTr; sym_forTr; sym_foreachTr];
   STATE 12526 [sym_exceptionHandlerTr]; STATE 14977 [sym__exceptionHandlersTr];
   STATE 15991 [sym_tryTr; sym_caseTr]; STATE 14251 [sym_blockTr]; STATE 15991 [sym_asmTr;
   sym_withTr; sym_raiseTr; sym_statementTr; sym_gotoTr; sym__statementTr];
   STATE 13915 [sym_assignment]; STATE 11785 [sym_varAssignDef]; STATE 13915 [sym_varDef;
   sym_constDef]; STATE 6166 [sym_label]; STATE 15991 [sym__statementsTr];
   STATE 14977 [sym_statementsTr]; STATE 8019 [sym__expr; sym_exprConditional];
   STATE 7478 [sym__ref; sym_lambda; sym_inherited; sym_exprDot; sym_exprDeref; sym_exprAs;
   sym_exprTpl; sym_exprSubscript; sym_exprCall]; STATE 8019 [sym_exprBinary; sym_exprUnary];
   STATE 7478 [sym_exprParens; sym_exprBrackets; sym__literal; sym_literalString];
   STATE 6664 [sym__literalString; sym_literalChar]; STATE 7478 [sym_literalNumber];
   STATE 7742 [sym__literalInt; sym__literalFloat]; STATE 1380 [sym__ppIf];
   STATE 6327 [sym__ppStatementBlock]; STATE 11840 [aux_sym_labeledStatement_repeat1];
   STATE 12159 [aux_sym__exceptionHandlersTr_repeat1]; STATE 863 [aux_sym__statementsTr_repeat1];
   STATE 6664 [aux_sym_literalString_repeat1]; ACTIONS 397 [anon_sym_SEMI];
   ACTIONS 399 [anon_sym_LBRACK]; ACTIONS 401 [anon_sym_LPAREN];
   ACTIONS 403 [aux_sym__literalString_token1]; ACTIONS 405 [anon_sym_POUND];
   ACTIONS 407 [aux_sym__literalInt_token1]; ACTIONS 409 [aux_sym__literalInt_token2;
   aux_sym__literalInt_token3]; ACTIONS 407 [aux_sym__literalFloat_token1];
   ACTIONS 411 [aux_sym_ppUsesBlock_token1]; ACTIONS 413 [sym_kAdd; sym_kSub];
   ACTIONS 415 [sym_kAt]; ACTIONS 417 [sym_kTrue; sym_kFalse]; ACTIONS 419 [sym_labelNumber];
   ACTIONS 3 [sym__space]; ACTIONS 5 [sym_ppDirective]; ACTIONS 3 [sym_comment];
   ACTIONS 417 [sym_ppFragmentExpr]; ACTIONS 397 [sym_ppFragmentStmt];
   ACTIONS 403 [sym__literalStringMultiline]; ACTIONS 421 [sym_identifier];
   ACTIONS 423 [sym_kSpecialize]; ACTIONS 425 [sym_kOn]; ACTIONS 427 [sym_kAsm];
   ACTIONS 429 [sym_kBegin]; ACTIONS 431 [sym_kCase]; ACTIONS 433 [sym_kConst];
   ACTIONS 537 [sym_kEnd]; ACTIONS 437 [sym_kFor]; ACTIONS 439 [sym_kFunction];
   ACTIONS 441 [sym_kGoto]; ACTIONS 443 [sym_kIf]; ACTIONS 445 [sym_kInherited];
   ACTIONS 417 [sym_kNil]; ACTIONS 415 [sym_kNot]; ACTIONS 439 [sym_kProcedure];
   ACTIONS 447 [sym_kRaise]; ACTIONS 449 [sym_kRepeat]; ACTIONS 451 [sym_kString];
   ACTIONS 453 [sym_kTry]; ACTIONS 455 [sym_kVar]; ACTIONS 457 [sym_kWhile];
   ACTIONS 459 [sym_kWith]].

(** State 99. *)
Definition ts_parse_table_99 : parse_row :=
  [STATE 6213 [sym_if]; STATE 6327 [sym_ifElse; sym_while; sym_repeat; sym_for; sym_foreach];
   STATE 12104 [sym_exceptionHandler]; STATE 6327 [sym_try; sym_case; sym_block; sym_asm;
   sym_with; sym_raise; sym_statement; sym_goto; sym__statement]; STATE 15991 [sym_ifTr;
   sym_ifElseTr; sym_whileTr; sym_repeatTr; sym_forTr; sym_foreachTr];
   STATE 12526 [sym_exceptionHandlerTr]; STATE 15629 [sym__exceptionHandlersTr];
   STATE 15991 [sym_tryTr; sym_caseTr]; STATE 14251 [sym_blockTr]; STATE 15991 [sym_asmTr;
   sym_withTr; sym_raiseTr; sym_statementTr; sym_gotoTr; sym__statementTr];
   STATE 13915 [sym_assignment]; STATE 11785 [sym_varAssignDef]; STATE 13915 [sym_varDef;
   sym_constDef]; STATE 6166 [sym_label]; STATE 15991 [sym__statementsTr];
   STATE 15629 [sym_statementsTr]; STATE 8019 [sym__expr; sym_exprConditional];
   STATE 7478 [sym__ref; sym_lambda; sym_inherited; sym_exprDot; sym_exprDeref; sym_exprAs;
   sym_exprTpl; sym_exprSubscript; sym_exprCall]; STATE 8019 [sym_exprBinary; sym_exprUnary];
   STATE 7478 [sym_exprParens; sym_exprBrackets; sym__literal; sym_literalString];
   STATE 6664 [sym__literalString; sym_literalChar]; STATE 7478 [sym_literalNumber];
   STATE 7742 [sym__literalInt; sym__literalFloat]; STATE 1380 [sym__ppIf];
   STATE 6327 [sym__ppStatementBlock]; STATE 11840 [aux_sym_labeledStatement_repeat1];
   STATE 12159 [aux_sym__exceptionHandlersTr_repeat1]; STATE 863 [aux_sym__statementsTr_repeat1];
   STATE 6664 [aux_sym_literalString_repeat1]; ACTIONS 397 [anon_sym_SEMI];
   ACTIONS 399 [anon_sym_LBRACK]; ACTIONS 401 [anon_sym_LPAREN];
   ACTIONS 403 [aux_sym__literalString_token1]; ACTIONS 405 [anon_sym_POUND];
   ACTIONS 407 [aux_sym__literalInt_token1]; ACTIONS 409 [aux_sym__literalInt_token2;
   aux_sym__literalInt_token3]; ACTIONS 407 [aux_sym__literalFloat_token1];
   ACTIONS 411 [aux_sym_ppUsesBlock_token1]; ACTIONS 413 [sym_kAdd; sym_kSub];
   ACTIONS 415 [sym_kAt]; ACTIONS 417 [sym_kTrue; sym_kFalse]; ACTIONS 419 [sym_labelNumber];
   ACTIONS 3 [sym__space]; ACTIONS 5 [sym_ppDirective]; ACTIONS 3 [sym_comment];
   ACTIONS 417 [sym_ppFragmentExpr]; ACTIONS 397 [sym_ppFragmentStmt];
   ACTIONS 403 [sym__literalStringMultiline]; ACTIONS 421 [sym_identifier];
   ACTIONS 423 [sym_kSpecialize]; ACTIONS 425 [sym_kOn]; ACTIONS 427 [sym_kAsm];
   ACTIONS 429 [sym_kBegin]; ACTIONS 431 [sym_kCase]; ACTIONS 433 [sym_kConst];
   ACTIONS 539 [sym_kEnd]; ACTIONS 437 [sym_kFor]; ACTIONS 439 [sym_kFunction];
   ACTIONS 441 [sym_kGoto]; ACTIONS 443 [sym_kIf]; ACTIONS 445 [sym_kInherited];
   ACTIONS 417 [sym_kNil]; ACTIONS 415 [sym_kNot]; ACTIONS 439 [sym_kProcedure];
   ACTIONS 447 [sym_kRaise]; ACTIONS 449 [sym_kRepeat]; ACTIONS 451 [sym_kString];
   ACTIONS 453 [sym_kTry]; ACTIONS 455 [sym_kVar]; ACTIONS 457 [sym_kWhile];
   ACTIONS 459 [sym_kWith]].

(** State 100. *)
Definition ts_parse_table_100 : parse_row :=
  [STATE 6213 [sym_if]; STATE 6327 [sym_ifElse; sym_while; sym_repeat; sym_for; sym_foreach];
   STATE 12104 [sym_exceptionHandler]; STATE 6327 [sym_try; sym_case; sym_block; sym_asm;
   sym_with; sym_raise; sym_statement; sym_goto; sym__statement]; STATE 15991 [sym_ifTr;
   sym_ifElseTr; sym_whileTr; sym_repeatTr; sym_forTr; sym_foreachTr];
   STATE 12526 [sym_exceptionHandlerTr]; STATE 15164 [sym__exceptionHandlersTr];
   STATE 15991 [sym_tryTr; sym_caseTr]; STATE 14251 [sym_blockTr]; STATE 15991 [sym_asmTr;
   sym_withTr; sym_raiseTr; sym_statementTr; sym_gotoTr; sym__statementTr];
   STATE 13915 [sym_assignment]; STATE 11785 [sym_varAssignDef]; STATE 13915 [sym_varDef;
   sym_constDef]; STATE 6166 [sym_label]; STATE 15991 [sym__statementsTr];
   STATE 15164 [sym_statementsTr]; STATE 8019 [sym__expr; sym_exprConditional];
   STATE 7478 [sym__ref; sym_lambda; sym_inherited; sym_exprDot; sym_exprDeref; sym_exprAs;
   sym_exprTpl; sym_exprSubscript; sym_exprCall]; STATE 8019 [sym_exprBinary; sym_exprUnary];
   STATE 7478 [sym_exprParens; sym_exprBrackets; sym__literal; sym_literalString];
   STATE 6664 [sym__literalString; sym_literalChar]; STATE 7478 [sym_literalNumber];
   STATE 7742 [sym__literalInt; sym__literalFloat]; STATE 1380 [sym__ppIf];
   STATE 6327 [sym__ppStatementBlock]; STATE 11840 [aux_sym_labeledStatement_repeat1];
   STATE 12159 [aux_sym__exceptionHandlersTr_repeat1]; STATE 863 [aux_sym__statementsTr_repeat1];
   STATE 6664 [aux_sym_literalString_repeat1]; ACTIONS 397 [anon_sym_SEMI];
   ACTIONS 399 [anon_sym_LBRACK]; ACTIONS 401 [anon_sym_LPAREN];
   ACTIONS 403 [aux_sym__literalString_token1]; ACTIONS 405 [anon_sym_POUND];
   ACTIONS 407 [aux_sym__literalInt_token1]; ACTIONS 409 [aux_sym__literalInt_token2;
   aux_sym__literalInt_token3]; ACTIONS 407 [aux_sym__literalFloat_token1];
   ACTIONS 411 [aux_sym_ppUsesBlock_token1]; ACTIONS 413 [sym_kAdd; sym_kSub];
   ACTIONS 415 [sym_kAt]; ACTIONS 417 [sym_kTrue; sym_kFalse]; ACTIONS 419 [sym_labelNumber];
   ACTIONS 3 [sym__space]; ACTIONS 5 [sym_ppDirective]; ACTIONS 3 [sym_comment];
   ACTIONS 417 [sym_ppFragmentExpr]; ACTIONS 397 [sym_ppFragmentStmt];
   ACTIONS 403 [sym__literalStringMultiline]; ACTIONS 421 [sym_identifier];
   ACTIONS 423 [sym_kSpecialize]; ACTIONS 425 [sym_kOn]; ACTIONS 427 [sym_kAsm];
   ACTIONS 429 [sym_kBegin]; ACTIONS 431 [sym_kCase]; ACTIONS 433 [sym_kConst];
   ACTIONS 541 [sym_kEnd]; ACTIONS 437 [sym_kFor]; ACTIONS 439 [sym_kFunction];
   ACTIONS 441 [sym_kGoto]; ACTIONS 443 [sym_kIf]; ACTIONS 445 [sym_kInherited];
   ACTIONS 417 [sym_kNil]; ACTIONS 415 [sym_kNot]; ACTIONS 439 [sym_kProcedure];
   ACTIONS 447 [sym_kRaise]; ACTIONS 449 [sym_kRepeat]; ACTIONS 451 [sym_kString];
   ACTIONS 453 [sym_kTry]; ACTIONS 455 [sym_kVar]; ACTIONS 457 [sym_kWhile];
   ACTIONS 459 [sym_kWith]].

(** State 101. *)
Definition ts_parse_table_101 : parse_row :=
  [STATE 6213 [sym_if]; STATE 6327 [sym_ifElse; sym_while; sym_repeat; sym_for; sym_foreach];
   STATE 12104 [sym_exceptionHandler]; STATE 6327 [sym_try; sym_case; sym_block; sym_asm;
   sym_with; sym_raise; sym_statement; sym_goto; sym__statement]; STATE 15991 [sym_ifTr;
   sym_ifElseTr; sym_whileTr; sym_repeatTr; sym_forTr; sym_foreachTr];
   STATE 12526 [sym_exceptionHandlerTr]; STATE 15307 [sym__exceptionHandlersTr];
   STATE 15991 [sym_tryTr; sym_caseTr]; STATE 14251 [sym_blockTr]; STATE 15991 [sym_asmTr;
   sym_withTr; sym_raiseTr; sym_statementTr; sym_gotoTr; sym__statementTr];
   STATE 13915 [sym_assignment]; STATE 11785 [sym_varAssignDef]; STATE 13915 [sym_varDef;
   sym_constDef]; STATE 6166 [sym_label]; STATE 15991 [sym__statementsTr];
   STATE 15307 [sym_statementsTr]; STATE 8019 [sym__expr; sym_exprConditional];
   STATE 7478 [sym__ref; sym_lambda; sym_inherited; sym_exprDot; sym_exprDeref; sym_exprAs;
   sym_exprTpl; sym_exprSubscript; sym_exprCall]; STATE 8019 [sym_exprBinary; sym_exprUnary];
   STATE 7478 [sym_exprParens; sym_exprBrackets; sym__literal; sym_literalString];
   STATE 6664 [sym__literalString; sym_literalChar]; STATE 7478 [sym_literalNumber];
   STATE 7742 [sym__literalInt; sym__literalFloat]; STATE 1380 [sym__ppIf];
   STATE 6327 [sym__ppStatementBlock]; STATE 11840 [aux_sym_labeledStatement_repeat1];
   STATE 12159 [aux_sym__exceptionHandlersTr_repeat1]; STATE 863 [aux_sym__statementsTr_repeat1];
   STATE 6664 [aux_sym_literalString_repeat1]; ACTIONS 397 [anon_sym_SEMI];
   ACTIONS 399 [anon_sym_LBRACK]; ACTIONS 401 [anon_sym_LPAREN];
   ACTIONS 403 [aux_sym__literalString_token1]; ACTIONS 405 [anon_sym_POUND];
   ACTIONS 407 [aux_sym__literalInt_token1]; ACTIONS 409 [aux_sym__literalInt_token2;
   aux_sym__literalInt_token3]; ACTIONS 407 [aux_sym__literalFloat_token1];
   ACTIONS 411 [aux_sym_ppUsesBlock_token1]; ACTIONS 413 [sym_kAdd; sym_kSub];
   ACTIONS 415 [sym_kAt]; ACTIONS 417 [sym_kTrue; sym_kFalse]; ACTIONS 419 [sym_labelNumber];
   ACTIONS 3 [sym__space]; ACTIONS 5 [sym_ppDirective]; ACTIONS 3 [sym_comment];
   ACTIONS 417 [sym_ppFragmentExpr]; ACTIONS 397 [sym_ppFragmentStmt];
   ACTIONS 403 [sym__literalStringMultiline]; ACTIONS 421 [sym_identifier];
   ACTIONS 423 [sym_kSpecialize]; ACTIONS 425 [sym_kOn]; ACTIONS 427 [sym_kAsm];
   ACTIONS 429 [sym_kBegin]; ACTIONS 431 [sym_kCase]; ACTIONS 433 [sym_kConst];
   ACTIONS 543 [sym_kEnd]; ACTIONS 437 [sym_kFor]; ACTIONS 439 [sym_kFunction];
   ACTIONS 441 [sym_kGoto]; ACTIONS 443 [sym_kIf]; ACTIONS 445 [sym_kInherited];
   ACTIONS 417 [sym_kNil]; ACTIONS 415 [sym_kNot]; ACTIONS 439 [sym_kProcedure];
   ACTIONS 447 [sym_kRaise]; ACTIONS 449 [sym_kRepeat]; ACTIONS 451 [sym_kString];
   ACTIONS 453 [sym_kTry]; ACTIONS 455 [sym_kVar]; ACTIONS 457 [sym_kWhile];
   ACTIONS 459 [sym_kWith]].

(** State 102. *)
Definition ts_parse_table_102 : parse_row :=
  [STATE 6213 [sym_if]; STATE 6327 [sym_ifElse; sym_while; sym_repeat; sym_for; sym_foreach];
   STATE 12104 [sym_exceptionHandler]; STATE 6327 [sym_try; sym_case; sym_block; sym_asm;
   sym_with; sym_raise; sym_statement; sym_goto; sym__statement]; STATE 15991 [sym_ifTr;
   sym_ifElseTr; sym_whileTr; sym_repeatTr; sym_forTr; sym_foreachTr];
   STATE 12526 [sym_exceptionHandlerTr]; STATE 15373 [sym__exceptionHandlersTr];
   STATE 15991 [sym_tryTr; sym_caseTr]; STATE 14251 [sym_blockTr]; STATE 15991 [sym_asmTr;
   sym_withTr; sym_raiseTr; sym_statementTr; sym_gotoTr; sym__statementTr];
   STATE 13915 [sym_assignment]; STATE 11785 [sym_varAssignDef]; STATE 13915 [sym_varDef;
   sym_constDef]; STATE 6166 [sym_label]; STATE 15991 [sym__statementsTr];
   STATE 15373 [sym_statementsTr]; STATE 8019 [sym__expr; sym_exprConditional];
   STATE 7478 [sym__ref; sym_lambda; sym_inherited; sym_exprDot; sym_exprDeref; sym_exprAs;
   sym_exprTpl; sym_exprSubscript; sym_exprCall]; STATE 8019 [sym_exprBinary; sym_exprUnary];
   STATE 7478 [sym_exprParens; sym_exprBrackets; sym__literal; sym_literalString];
   STATE 6664 [sym__literalString; sym_literalChar]; STATE 7478 [sym_literalNumber];
   STATE 7742 [sym__literalInt; sym__literalFloat]; STATE 1380 [sym__ppIf];
   STATE 6327 [sym__ppStatementBlock]; STATE 11840 [aux_sym_labeledStatement_repeat1];
   STATE 12159 [aux_sym__exceptionHandlersTr_repeat1]; STATE 863 [aux_sym__statementsTr_repeat1];
   STATE 6664 [aux_sym_literalString_repeat1]; ACTIONS 397 [anon_sym_SEMI];
   ACTIONS 399 [anon_sym_LBRACK]; ACTIONS 401 [anon_sym_LPAREN];
   ACTIONS 403 [aux_sym__literalString_token1]; ACTIONS 405 [anon_sym_POUND];
   ACTIONS 407 [aux_sym__literalInt_token1]; ACTIONS 409 [aux_sym__literalInt_token2;
   aux_sym__literalInt_token3]; ACTIONS 407 [aux_sym__literalFloat_token1];
   ACTIONS 411 [aux_sym_ppUsesBlock_token1]; ACTIONS 413 [sym_kAdd; sym_kSub];
   ACTIONS 415 [sym_kAt]; ACTIONS 417 [sym_kTrue; sym_kFalse]; ACTIONS 419 [sym_labelNumber];
   ACTIONS 3 [sym__space]; ACTIONS 5 [sym_ppDirective]; ACTIONS 3 [sym_comment];
   ACTIONS 417 [sym_ppFragmentExpr]; ACTIONS 397 [sym_ppFragmentStmt];
   ACTIONS 403 [sym__literalStringMultiline]; ACTIONS 421 [sym_identifier];
   ACTIONS 423 [sym_kSpecialize]; ACTIONS 425 [sym_kOn]; ACTIONS 427 [sym_kAsm];
   ACTIONS 429 [sym_kBegin]; ACTIONS 431 [sym_kCase]; ACTIONS 433 [sym_kConst];
   ACTIONS 545 [sym_kEnd]; ACTIONS 437 [sym_kFor]; ACTIONS 439 [sym_kFunction];
   ACTIONS 441 [sym_kGoto]; ACTIONS 443 [sym_kIf]; ACTIONS 445 [sym_kInherited];
   ACTIONS 417 [sym_kNil]; ACTIONS 415 [sym_kNot]; ACTIONS 439 [sym_kProcedure];
   ACTIONS 447 [sym_kRaise]; ACTIONS 449 [sym_kRepeat]; ACTIONS 451 [sym_kString];
   ACTIONS 453 [sym_kTry]; ACTIONS 455 [sym_kVar]; ACTIONS 457 [sym_kWhile];
   ACTIONS 459 [sym_kWith]].

(** State 103. *)
Definition ts_parse_table_103 : parse_row :=
  [STATE 6213 [sym_if]; STATE 6327 [sym_ifElse; sym_while; sym_repeat; sym_for; sym_foreach];
   STATE 12104 [sym_exceptionHandler]; STATE 6327 [sym_try; sym_case; sym_block; sym_asm;
   sym_with; sym_raise; sym_statement; sym_goto; sym__statement]; STATE 15991 [sym_ifTr;
   sym_ifElseTr; sym_whileTr; sym_repeatTr; sym_forTr; sym_foreachTr];
   STATE 12526 [sym_exceptionHandlerTr]; STATE 15498 [sym__exceptionHandlersTr];
   STATE 15991 [sym_tryTr; sym_caseTr]; STATE 14251 [sym_blockTr]; STATE 15991 [sym_asmTr;
   sym_withTr; sym_raiseTr; sym_statementTr; sym_gotoTr; sym__statementTr];
   STATE 13915 [sym_assignment]; STATE 11785 [sym_varAssignDef]; STATE 13915 [sym_varDef;
   sym_constDef]; STATE 6166 [sym_label]; STATE 15991 [sym__statementsTr];
   STATE 15498 [sym_statementsTr]; STATE 8019 [sym__expr; sym_exprConditional];
   STATE 7478 [sym__ref; sym_lambda; sym_inherited; sym_exprDot; sym_exprDeref; sym_exprAs;
   sym_exprTpl; sym_exprSubscript; sym_exprCall]; STATE 8019 [sym_exprBinary; sym_exprUnary];
   STATE 7478 [sym_exprParens; sym_exprBrackets; sym__literal; sym_literalString];
   STATE 6664 [sym__literalString; sym_literalChar]; STATE 7478 [sym_literalNumber];
   STATE 7742 [sym__literalInt; sym__literalFloat]; STATE 1380 [sym__ppIf];
   STATE 6327 [sym__ppStatementBlock]; STATE 11840 [aux_sym_labeledStatement_repeat1];
   STATE 12159 [aux_sym__exceptionHandlersTr_repeat1]; STATE 863 [aux_sym__statementsTr_repeat1];
   STATE 6664 [aux_sym_literalString_repeat1]; ACTIONS 397 [anon_sym_SEMI];
   ACTIONS 399 [anon_sym_LBRACK]; ACTIONS 401 [anon_sym_LPAREN];
   ACTIONS 403 [aux_sym__literalString_token1]; ACTIONS 405 [anon_sym_POUND];
   ACTIONS 407 [aux_sym__literalInt_token1]; ACTIONS 409 [aux_sym__literalInt_token2;
   aux_sym__literalInt_token3]; ACTIONS 407 [aux_sym__literalFloat_token1];
   ACTIONS 411 [aux_sym_ppUsesBlock_token1]; ACTIONS 413 [sym_kAdd; sym_kSub];
   ACTIONS 415 [sym_kAt]; ACTIONS 417 [sym_kTrue; sym_kFalse]; ACTIONS 419 [sym_labelNumber];
   ACTIONS 3 [sym__space]; ACTIONS 5 [sym_ppDirective]; ACTIONS 3 [sym_comment];
   ACTIONS 417 [sym_ppFragmentExpr]; ACTIONS 397 [sym_ppFragmentStmt];
   ACTIONS 403 [sym__literalStringMultiline]; ACTIONS 421 [sym_identifier];
   ACTIONS 423 [sym_kSpecialize]; ACTIONS 425 [sym_kOn]; ACTIONS 427 [sym_kAsm];
   ACTIONS 429 [sym_kBegin]; ACTIONS 431 [sym_kCase]; ACTIONS 433 [sym_kConst];
   ACTIONS 547 [sym_kEnd]; ACTIONS 437 [sym_kFor]; ACTIONS 439 [sym_kFunction];
   ACTIONS 441 [sym_kGoto]; ACTIONS 443 [sym_kIf]; ACTIONS 445 [sym_kInherited];
   ACTIONS 417 [sym_kNil]; ACTIONS 415 [sym_kNot]; ACTIONS 439 [sym_kProcedure];
   ACTIONS 447 [sym_kRaise]; ACTIONS 449 [sym_kRepeat]; ACTIONS 451 [sym_kString];
   ACTIONS 453 [sym_kTry]; ACTIONS 455 [sym_kVar]; ACTIONS 457 [sym_kWhile];
   ACTIONS 459 [sym_kWith]].

(** State 104. *)
Definition ts_parse_table_104 : parse_row :=
  [STATE 6213 [sym_if]; STATE 6327 [sym_ifElse; sym_while; sym_repeat; sym_for; sym_foreach];
   STATE 12104 [sym_exceptionHandler]; STATE 6327 [sym_try; sym_case; sym_block; sym_asm;
   sym_with; sym_raise; sym_statement; sym_goto; sym__statement]; STATE 15991 [sym_ifTr;
   sym_ifElseTr; sym_whileTr; sym_repeatTr; sym_forTr; sym_foreachTr];
   STATE 12526 [sym_exceptionHandlerTr]; STATE 15541 [sym__exceptionHandlersTr];
   STATE 15991 [sym_tryTr; sym_caseTr]; STATE 14251 [sym_blockTr]; STATE 15991 [sym_asmTr;
   sym_withTr; sym_raiseTr; sym_statementTr; sym_gotoTr; sym__statementTr];
   STATE 13915 [sym_assignment]; STATE 11785 [sym_varAssignDef]; STATE 13915 [sym_varDef;
   sym_constDef]; STATE 6166 [sym_label]; STATE 15991 [sym__statementsTr];
   STATE 15541 [sym_statementsTr]; STATE 8019 [sym__expr; sym_exprConditional];
   STATE 7478 [sym__ref; sym_lambda; sym_inherited; sym_exprDot; sym_exprDeref; sym_exprAs;
   sym_exprTpl; sym_exprSubscript; sym_exprCall]; STATE 8019 [sym_exprBinary; sym_exprUnary];
   STATE 7478 [sym_exprParens; sym_exprBrackets; sym__literal; sym_literalString];
   STATE 6664 [sym__literalString; sym_literalChar]; STATE 7478 [sym_literalNumber];
   STATE 7742 [sym__literalInt; sym__literalFloat]; STATE 1380 [sym__ppIf];
   STATE 6327 [sym__ppStatementBlock]; STATE 11840 [aux_sym_labeledStatement_repeat1];
   STATE 12159 [aux_sym__exceptionHandlersTr_repeat1]; STATE 863 [aux_sym__statementsTr_repeat1];
   STATE 6664 [aux_sym_literalString_repeat1]; ACTIONS 397 [anon_sym_SEMI];
   ACTIONS 399 [anon_sym_LBRACK]; ACTIONS 401 [anon_sym_LPAREN];
   ACTIONS 403 [aux_sym__literalString_token1]; ACTIONS 405 [anon_sym_POUND];
   ACTIONS 407 [aux_sym__literalInt_token1]; ACTIONS 409 [aux_sym__literalInt_token2;
   aux_sym__literalInt_token3]; ACTIONS 407 [aux_sym__literalFloat_token1];
   ACTIONS 411 [aux_sym_ppUsesBlock_token1]; ACTIONS 413 [sym_kAdd; sym_kSub];
   ACTIONS 415 [sym_kAt]; ACTIONS 417 [sym_kTrue; sym_kFalse]; ACTIONS 419 [sym_labelNumber];
   ACTIONS 3 [sym__space]; ACTIONS 5 [sym_ppDirective]; ACTIONS 3 [sym_comment];
   ACTIONS 417 [sym_ppFragmentExpr]; ACTIONS 397 [sym_ppFragmentStmt];
   ACTIONS 403 [sym__literalStringMultiline]; ACTIONS 421 [sym_identifier];
   ACTIONS 423 [sym_kSpecialize]; ACTIONS 425 [sym_kOn]; ACTIONS 427 [sym_kAsm];
   ACTIONS 429 [sym_kBegin]; ACTIONS 431 [sym_kCase]; ACTIONS 433 [sym_kConst];
   ACTIONS 549 [sym_kEnd]; ACTIONS 437 [sym_kFor]; ACTIONS 439 [sym_kFunction];
   ACTIONS 441 [sym_kGoto]; ACTIONS 443 [sym_kIf]; ACTIONS 445 [sym_kInherited];
   ACTIONS 417 [sym_kNil]; ACTIONS 415 [sym_kNot]; ACTIONS 439 [sym_kProcedure];
   ACTIONS 447 [sym_kRaise]; ACTIONS 449 [sym_kRepeat]; ACTIONS 451 [sym_kString];
   ACTIONS 453 [sym_kTry]; ACTIONS 455 [sym_kVar]; ACTIONS 457 [sym_kWhile];
   ACTIONS 459 [sym_kWith]].

(** State 105. *)
Definition ts_parse_table_105 : parse_row :=
  [STATE 6213 [sym_if]; STATE 6327 [sym_ifElse; sym_while; sym_repeat; sym_for; sym_foreach];
   STATE 12104 [sym_exceptionHandler]; STATE 6327 [sym_try; sym_case; sym_block; sym_asm;
   sym_with; sym_raise; sym_statement; sym_goto; sym__statement]; STATE 15991 [sym_ifTr;
   sym_ifElseTr; sym_whileTr; sym_repeatTr; sym_forTr; sym_foreachTr];
   STATE 12526 [sym_exceptionHandlerTr]; STATE 15622 [sym__exceptionHandlersTr];
   STATE 15991 [sym_tryTr; sym_caseTr]; STATE 14251 [sym_blockTr]; STATE 15991 [sym_asmTr;
   sym_withTr; sym_raiseTr; sym_statementTr; sym_gotoTr; sym__statementTr];
   STATE 13915 [sym_assignment]; STATE 11785 [sym_varAssignDef]; STATE 13915 [sym_varDef;
   sym_constDef]; STATE 6166 [sym_label]; STATE 15991 [sym__statementsTr];
   STATE 15622 [sym_statementsTr]; STATE 8019 [sym__expr; sym_exprConditional];
   STATE 7478 [sym__ref; sym_lambda; sym_inherited; sym_exprDot; sym_exprDeref; sym_exprAs;
   sym_exprTpl; sym_exprSubscript; sym_exprCall]; STATE 8019 [sym_exprBinary; sym_exprUnary];
   STATE 7478 [sym_exprParens; sym_exprBrackets; sym__literal; sym_literalString];
   STATE 6664 [sym__literalString; sym_literalChar]; STATE 7478 [sym_literalNumber];
   STATE 7742 [sym__literalInt; sym__literalFloat]; STATE 1380 [sym__ppIf];
   STATE 6327 [sym__ppStatementBlock]; STATE 11840 [aux_sym_labeledStatement_repeat1];
   STATE 12159 [aux_sym__exceptionHandlersTr_repeat1]; STATE 863 [aux_sym__statementsTr_repeat1];
   STATE 6664 [aux_sym_literalString_repeat1]; ACTIONS 397 [anon_sym_SEMI];
   ACTIONS 399 [anon_sym_LBRACK]; ACTIONS 401 [anon_sym_LPAREN];
   ACTIONS 403 [aux_sym__literalString_token1]; ACTIONS 405 [anon_sym_POUND];
   ACTIONS 407 [aux_sym__literalInt_token1]; ACTIONS 409 [aux_sym__literalInt_token2;
   aux_sym__literalInt_token3]; ACTIONS 407 [aux_sym__literalFloat_token1];
   ACTIONS 411 [aux_sym_ppUsesBlock_token1]; ACTIONS 413 [sym_kAdd; sym_kSub];
   ACTIONS 415 [sym_kAt]; ACTIONS 417 [sym_kTrue; sym_kFalse]; ACTIONS 419 [sym_labelNumber];
   ACTIONS 3 [sym__space]; ACTIONS 5 [sym_ppDirective]; ACTIONS 3 [sym_comment];
   ACTIONS 417 [sym_ppFragmentExpr]; ACTIONS 397 [sym_ppFragmentStmt];
   ACTIONS 403 [sym__literalStringMultiline]; ACTIONS 421 [sym_identifier];
   ACTIONS 423 [sym_kSpecialize]; ACTIONS 425 [sym_kOn]; ACTIONS 427 [sym_kAsm];
   ACTIONS 429 [sym_kBegin]; ACTIONS 431 [sym_kCase]; ACTIONS 433 [sym_kConst];
   ACTIONS 551 [sym_kEnd]; ACTIONS 437 [sym_kFor]; ACTIONS 439 [sym_kFunction];
   ACTIONS 441 [sym_kGoto]; ACTIONS 443 [sym_kIf]; ACTIONS 445 [sym_kInherited];
   ACTIONS 417 [sym_kNil]; ACTIONS 415 [sym_kNot]; ACTIONS 439 [sym_kProcedure];
   ACTIONS 447 [sym_kRaise]; ACTIONS 449 [sym_kRepeat]; ACTIONS 451 [sym_kString];
   ACTIONS 453 [sym_kTry]; ACTIONS 455 [sym_kVar]; ACTIONS 457 [sym_kWhile];
   ACTIONS 459 [sym_kWith]].

(** State 106. *)
Definition ts_parse_table_106 : parse_row :=
  [STATE 6213 [sym_if]; STATE 6327 [sym_ifElse; sym_while; sym_repeat; sym_for; sym_foreach];
   STATE 12104 [sym_exceptionHandler]; STATE 6327 [sym_try; sym_case; sym_block; sym_asm;
   sym_with; sym_raise; sym_statement; sym_goto; sym__statement]; STATE 15991 [sym_ifTr;
   sym_ifElseTr; sym_whileTr; sym_repeatTr; sym_forTr; sym_foreachTr];
   STATE 12526 [sym_exceptionHandlerTr]; STATE 15661 [sym__exceptionHandlersTr];
   STATE 15991 [sym_tryTr; sym_caseTr]; STATE 14251 [sym_blockTr]; STATE 15991 [sym_asmTr;
   sym_withTr; sym_raiseTr; sym_statementTr; sym_gotoTr; sym__statementTr];
   STATE 13915 [sym_assignment]; STATE 11785 [sym_varAssignDef]; STATE 13915 [sym_varDef;
   sym_constDef]; STATE 6166 [sym_label]; STATE 15991 [sym__statementsTr];
   STATE 15661 [sym_statementsTr]; STATE 8019 [sym__expr; sym_exprConditional];
   STATE 7478 [sym__ref; sym_lambda; sym_inherited; sym_exprDot; sym_exprDeref; sym_exprAs;
   sym_exprTpl; sym_exprSubscript; sym_exprCall]; STATE 8019 [sym_exprBinary; sym_exprUnary];
   STATE 7478 [sym_exprParens; sym_exprBrackets; sym__literal; sym_literalString];
   STATE 6664 [sym__literalString; sym_literalChar]; STATE 7478 [sym_literalNumber];
   STATE 7742 [sym__literalInt; sym__literalFloat]; STATE 1380 [sym__ppIf];
   STATE 6327 [sym__ppStatementBlock]; STATE 11840 [aux_sym_labeledStatement_repeat1];
   STATE 12159 [aux_sym__exceptionHandlersTr_repeat1]; STATE 863 [aux_sym__statementsTr_repeat1];
   STATE 6664 [aux_sym_literalString_repeat1]; ACTIONS 397 [anon_sym_SEMI];
   ACTIONS 399 [anon_sym_LBRACK]; ACTIONS 401 [anon_sym_LPAREN];
   ACTIONS 403 [aux_sym__literalString_token1]; ACTIONS 405 [anon_sym_POUND];
   ACTIONS 407 [aux_sym__literalInt_token1]; ACTIONS 409 [aux_sym__literalInt_token2;
   aux_sym__literalInt_token3]; ACTIONS 407 [aux_sym__literalFloat_token1];
   ACTIONS 411 [aux_sym_ppUsesBlock_token1]; ACTIONS 413 [sym_kAdd; sym_kSub];
   ACTIONS 415 [sym_kAt]; ACTIONS 417 [sym_kTrue; sym_kFalse]; ACTIONS 419 [sym_labelNumber];
   ACTIONS 3 [sym__space]; ACTIONS 5 [sym_ppDirective]; ACTIONS 3 [sym_comment];
   ACTIONS 417 [sym_ppFragmentExpr]; ACTIONS 397 [sym_ppFragmentStmt];
   ACTIONS 403 [sym__literalStringMultiline]; ACTIONS 421 [sym_identifier];
   ACTIONS 423 [sym_kSpecialize]; ACTIONS 425 [sym_kOn]; ACTIONS 427 [sym_kAsm];
   ACTIONS 429 [sym_kBegin]; ACTIONS 431 [sym_kCase]; ACTIONS 433 [sym_kConst];
   ACTIONS 553 [sym_kEnd]; ACTIONS 437 [sym_kFor]; ACTIONS 439 [sym_kFunction];
   ACTIONS 441 [sym_kGoto]; ACTIONS 443 [sym_kIf]; ACTIONS 445 [sym_kInherited];
   ACTIONS 417 [sym_kNil]; ACTIONS 415 [sym_kNot]; ACTIONS 439 [sym_kProcedure];
   ACTIONS 447 [sym_kRaise]; ACTIONS 449 [sym_kRepeat]; ACTIONS 451 [sym_kString];
   ACTIONS 453 [sym_kTry]; ACTIONS 455 [sym_kVar]; ACTIONS 457 [sym_kWhile];
   ACTIONS 459 [sym_kWith]].

(** State 107. *)
Definition ts_parse_table_107 : parse_row :=
  [STATE 6213 [sym_if]; STATE 6327 [sym_ifElse; sym_while; sym_repeat; sym_for; sym_foreach];
   STATE 12104 [sym_exceptionHandler]; STATE 6327 [sym_try; sym_case; sym_block; sym_asm;
   sym_with; sym_raise; sym_statement; sym_goto; sym__statement]; STATE 15991 [sym_ifTr;
   sym_ifElseTr; sym_whileTr; sym_repeatTr; sym_forTr; sym_foreachTr];
   STATE 12526 [sym_exceptionHandlerTr]; STATE 15777 [sym__exceptionHandlersTr];
   STATE 15991 [sym_tryTr; sym_caseTr]; STATE 14251 [sym_blockTr]; STATE 15991 [sym_asmTr;
   sym_withTr; sym_raiseTr; sym_statementTr; sym_gotoTr; sym__statementTr];
   STATE 13915 [sym_assignment]; STATE 11785 [sym_varAssignDef]; STATE 13915 [sym_varDef;
   sym_constDef]; STATE 6166 [sym_label]; STATE 15991 [sym__statementsTr];
   STATE 15777 [sym_statementsTr]; STATE 8019 [sym__expr; sym_exprConditional];
   STATE 7478 [sym__ref; sym_lambda; sym_inherited; sym_exprDot; sym_exprDeref; sym_exprAs;
   sym_exprTpl; sym_exprSubscript; sym_exprCall]; STATE 8019 [sym_exprBinary; sym_exprUnary];
   STATE 7478 [sym_exprParens; sym_exprBrackets; sym__literal; sym_literalString];
   STATE 6664 [sym__literalString; sym_literalChar]; STATE 7478 [sym_literalNumber];
   STATE 7742 [sym__literalInt; sym__literalFloat]; STATE 1380 [sym__ppIf];
   STATE 6327 [sym__ppStatementBlock]; STATE 11840 [aux_sym_labeledStatement_repeat1];
   STATE 12159 [aux_sym__exceptionHandlersTr_repeat1]; STATE 863 [aux_sym__statementsTr_repeat1];
   STATE 6664 [aux_sym_literalString_repeat1]; ACTIONS 397 [anon_sym_SEMI];
   ACTIONS 399 [anon_sym_LBRACK]; ACTIONS 401 [anon_sym_LPAREN];
   ACTIONS 403 [aux_sym__literalString_token1]; ACTIONS 405 [anon_sym_POUND];
   ACTIONS 407 [aux_sym__literalInt_token1]; ACTIONS 409 [aux_sym__literalInt_token2;
   aux_sym__literalInt_token3]; ACTIONS 407 [aux_sym__literalFloat_token1];
   ACTIONS 411 [aux_sym_ppUsesBlock_token1]; ACTIONS 413 [sym_kAdd; sym_kSub];
   ACTIONS 415 [sym_kAt]; ACTIONS 417 [sym_kTrue; sym_kFalse]; ACTIONS 419 [sym_labelNumber];
   ACTIONS 3 [sym__space]; ACTIONS 5 [sym_ppDirective]; ACTIONS 3 [sym_comment];
   ACTIONS 417 [sym_ppFragmentExpr]; ACTIONS 397 [sym_ppFragmentStmt];
   ACTIONS 403 [sym__literalStringMultiline]; ACTIONS 421 [sym_identifier];
   ACTIONS 423 [sym_kSpecialize]; ACTIONS 425 [sym_kOn]; ACTIONS 427 [sym_kAsm];
   ACTIONS 429 [sym_kBegin]; ACTIONS 431 [sym_kCase]; ACTIONS 433 [sym_kConst];
   ACTIONS 555 [sym_kEnd]; ACTIONS 437 [sym_kFor]; ACTIONS 439 [sym_kFunction];
   ACTIONS 441 [sym_kGoto]; ACTIONS 443 [sym_kIf]; ACTIONS 445 [sym_kInherited];
   ACTIONS 417 [sym_kNil]; ACTIONS 415 [sym_kNot]; ACTIONS 439 [sym_kProcedure];
   ACTIONS 447 [sym_kRaise]; ACTIONS 449 [sym_kRepeat]; ACTIONS 451 [sym_kString];
   ACTIONS 453 [sym_kTry]; ACTIONS 455 [sym_kVar]; ACTIONS 457 [sym_kWhile];
   ACTIONS 459 [sym_kWith]].

(** State 108. *)
Definition ts_parse_table_108 : parse_row :=
  [STATE 6213 [sym_if]; STATE 6327 [sym_ifElse; sym_while; sym_repeat; sym_for; sym_foreach];
   STATE 12104 [sym_exceptionHandler]; STATE 6327 [sym_try; sym_case; sym_block; sym_asm;
   sym_with; sym_raise; sym_statement; sym_goto; sym__statement]; STATE 15991 [sym_ifTr;
   sym_ifElseTr; sym_whileTr; sym_repeatTr; sym_forTr; sym_foreachTr];
   STATE 12526 [sym_exceptionHandlerTr]; STATE 15825 [sym__exceptionHandlersTr];
   STATE 15991 [sym_tryTr; sym_caseTr]; STATE 14251 [sym_blockTr]; STATE 15991 [sym_asmTr;
   sym_withTr; sym_raiseTr; sym_statementTr; sym_gotoTr; sym__statementTr];
   STATE 13915 [sym_assignment]; STATE 11785 [sym_varAssignDef]; STATE 13915 [sym_varDef;
   sym_constDef]; STATE 6166 [sym_label]; STATE 15991 [sym__statementsTr];
   STATE 15825 [sym_statementsTr]; STATE 8019 [sym__expr; sym_exprConditional];
   STATE 7478 [sym__ref; sym_lambda; sym_inherited; sym_exprDot; sym_exprDeref; sym_exprAs;
   sym_exprTpl; sym_exprSubscript; sym_exprCall]; STATE 8019 [sym_exprBinary; sym_exprUnary];
   STATE 7478 [sym_exprParens; sym_exprBrackets; sym__literal; sym_literalString];
   STATE 6664 [sym__literalString; sym_literalChar]; STATE 7478 [sym_literalNumber];
   STATE 7742 [sym__literalInt; sym__literalFloat]; STATE 1380 [sym__ppIf];
   STATE 6327 [sym__ppStatementBlock]; STATE 11840 [aux_sym_labeledStatement_repeat1];
   STATE 12159 [aux_sym__exceptionHandlersTr_repeat1]; STATE 863 [aux_sym__statementsTr_repeat1];
   STATE 6664 [aux_sym_literalString_repeat1]; ACTIONS 397 [anon_sym_SEMI];
   ACTIONS 399 [anon_sym_LBRACK]; ACTIONS 401 [anon_sym_LPAREN];
   ACTIONS 403 [aux_sym__literalString_token1]; ACTIONS 405 [anon_sym_POUND];
   ACTIONS 407 [aux_sym__literalInt_token1]; ACTIONS 409 [aux_sym__literalInt_token2;
   aux_sym__literalInt_token3]; ACTIONS 407 [aux_sym__literalFloat_token1];
   ACTIONS 411 [aux_sym_ppUsesBlock_token1]; ACTIONS 413 [sym_kAdd; sym_kSub];
   ACTIONS 415 [sym_kAt]; ACTIONS 417 [sym_kTrue; sym_kFalse]; ACTIONS 419 [sym_labelNumber];
   ACTIONS 3 [sym__space]; ACTIONS 5 [sym_ppDirective]; ACTIONS 3 [sym_comment];
   ACTIONS 417 [sym_ppFragmentExpr]; ACTIONS 397 [sym_ppFragmentStmt];
   ACTIONS 403 [sym__literalStringMultiline]; ACTIONS 421 [sym_identifier];
   ACTIONS 423 [sym_kSpecialize]; ACTIONS 425 [sym_kOn]; ACTIONS 427 [sym_kAsm];
   ACTIONS 429 [sym_kBegin]; ACTIONS 431 [sym_kCase]; ACTIONS 433 [sym_kConst];
   ACTIONS 557 [sym_kEnd]; ACTIONS 437 [sym_kFor]; ACTIONS 439 [sym_kFunction];
   ACTIONS 441 [sym_kGoto]; ACTIONS 443 [sym_kIf]; ACTIONS 445 [sym_kInherited];
   ACTIONS 417 [sym_kNil]; ACTIONS 415 [sym_kNot]; ACTIONS 439 [sym_kProcedure];
   ACTIONS 447 [sym_kRaise]; ACTIONS 449 [sym_kRepeat]; ACTIONS 451 [sym_kString];
   ACTIONS 453 [sym_kTry]; ACTIONS 455 [sym_kVar]; ACTIONS 457 [sym_kWhile];
   ACTIONS 459 [sym_kWith]].

(** State 109. *)
Definition ts_parse_table_109 : parse_row :=
  [STATE 6213 [sym_if]; STATE 6327 [sym_ifElse; sym_while; sym_repeat; sym_for; sym_foreach];
   STATE 12104 [sym_exceptionHandler]; STATE 6327 [sym_try; sym_case; sym_block; sym_asm;
   sym_with; sym_raise; sym_statement; sym_goto; sym__statement]; STATE 15991 [sym_ifTr;
   sym_ifElseTr; sym_whileTr; sym_repeatTr; sym_forTr; sym_foreachTr];
   STATE 12526 [sym_exceptionHandlerTr]; STATE 15971 [sym__exceptionHandlersTr];
   STATE 15991 [sym_tryTr; sym_caseTr]; STATE 14251 [sym_blockTr]; STATE 15991 [sym_asmTr;
   sym_withTr; sym_raiseTr; sym_statementTr; sym_gotoTr; sym__statementTr];
   STATE 13915 [sym_assignment]; STATE 11785 [sym_varAssignDef]; STATE 13915 [sym_varDef;
   sym_constDef]; STATE 6166 [sym_label]; STATE 15991 [sym__statementsTr];
   STATE 15971 [sym_statementsTr]; STATE 8019 [sym__expr; sym_exprConditional];
   STATE 7478 [sym__ref; sym_lambda; sym_inherited; sym_exprDot; sym_exprDeref; sym_exprAs;
   sym_exprTpl; sym_exprSubscript; sym_exprCall]; STATE 8019 [sym_exprBinary; sym_exprUnary];
   STATE 7478 [sym_exprParens; sym_exprBrackets; sym__literal; sym_literalString];
   STATE 6664 [sym__literalString; sym_literalChar]; STATE 7478 [sym_literalNumber];
   STATE 7742 [sym__literalInt; sym__literalFloat]; STATE 1380 [sym__ppIf];
   STATE 6327 [sym__ppStatementBlock]; STATE 11840 [aux_sym_labeledStatement_repeat1];
   STATE 12159 [aux_sym__exceptionHandlersTr_repeat1]; STATE 863 [aux_sym__statementsTr_repeat1];
   STATE 6664 [aux_sym_literalString_repeat1]; ACTIONS 397 [anon_sym_SEMI];
   ACTIONS 399 [anon_sym_LBRACK]; ACTIONS 401 [anon_sym_LPAREN];
   ACTIONS 403 [aux_sym__literalString_token1]; ACTIONS 405 [anon_sym_POUND];
   ACTIONS 407 [aux_sym__literalInt_token1]; ACTIONS 409 [aux_sym__literalInt_token2;
   aux_sym__literalInt_token3]; ACTIONS 407 [aux_sym__literalFloat_token1];
   ACTIONS 411 [aux_sym_ppUsesBlock_token1]; ACTIONS 413 [sym_kAdd; sym_kSub];
   ACTIONS 415 [sym_kAt]; ACTIONS 417 [sym_kTrue; sym_kFalse]; ACTIONS 419 [sym_labelNumber];
   ACTIONS 3 [sym__space]; ACTIONS 5 [sym_ppDirective]; ACTIONS 3 [sym_comment];
   ACTIONS 417 [sym_ppFragmentExpr]; ACTIONS 397 [sym_ppFragmentStmt];
   ACTIONS 403 [sym__literalStringMultiline]; ACTIONS 421 [sym_identifier];
   ACTIONS 423 [sym_kSpecialize]; ACTIONS 425 [sym_kOn]; ACTIONS 427 [sym_kAsm];
   ACTIONS 429 [sym_kBegin]; ACTIONS 431 [sym_kCase]; ACTIONS 433 [sym_kConst];
   ACTIONS 559 [sym_kEnd]; ACTIONS 437 [sym_kFor]; ACTIONS 439 [sym_kFunction];
   ACTIONS 441 [sym_kGoto]; ACTIONS 443 [sym_kIf]; ACTIONS 445 [sym_kInherited];
   ACTIONS 417 [sym_kNil]; ACTIONS 415 [sym_kNot]; ACTIONS 439 [sym_kProcedure];
   ACTIONS 447 [sym_kRaise]; ACTIONS 449 [sym_kRepeat]; ACTIONS 451 [sym_kString];
   ACTIONS 453 [sym_kTry]; ACTIONS 455 [sym_kVar]; ACTIONS 457 [sym_kWhile];
   ACTIONS 459 [sym_kWith]].

(** State 110. *)
Definition ts_parse_table_110 : parse_row :=
  [STATE 6213 [sym_if]; STATE 6327 [sym_ifElse; sym_while; sym_repeat; sym_for; sym_foreach];
   STATE 12104 [sym_exceptionHandler]; STATE 6327 [sym_try; sym_case; sym_block; sym_asm;
   sym_with; sym_raise; sym_statement; sym_goto; sym__statement]; STATE 15991 [sym_ifTr;
   sym_ifElseTr; sym_whileTr; sym_repeatTr; sym_forTr; sym_foreachTr];
   STATE 12526 [sym_exceptionHandlerTr]; STATE 16004 [sym__exceptionHandlersTr];
   STATE 15991 [sym_tryTr; sym_caseTr]; STATE 14251 [sym_blockTr]; STATE 15991 [sym_asmTr;
   sym_withTr; sym_raiseTr; sym_statementTr; sym_gotoTr; sym__statementTr];
   STATE 13915 [sym_assignment]; STATE 11785 [sym_varAssignDef]; STATE 13915 [sym_varDef;
   sym_constDef]; STATE 6166 [sym_label]; STATE 15991 [sym__statementsTr];
   STATE 16004 [sym_statementsTr]; STATE 8019 [sym__expr; sym_exprConditional];
   STATE 7478 [sym__ref; sym_lambda; sym_inherited; sym_exprDot; sym_exprDeref; sym_exprAs;
   sym_exprTpl; sym_exprSubscript; sym_exprCall]; STATE 8019 [sym_exprBinary; sym_exprUnary];
   STATE 7478 [sym_exprParens; sym_exprBrackets; sym__literal; sym_literalString];
   STATE 6664 [sym__literalString; sym_literalChar]; STATE 7478 [sym_literalNumber];
   STATE 7742 [sym__literalInt; sym__literalFloat]; STATE 1380 [sym__ppIf];
   STATE 6327 [sym__ppStatementBlock]; STATE 11840 [aux_sym_labeledStatement_repeat1];
   STATE 12159 [aux_sym__exceptionHandlersTr_repeat1]; STATE 863 [aux_sym__statementsTr_repeat1];
   STATE 6664 [aux_sym_literalString_repeat1]; ACTIONS 397 [anon_sym_SEMI];
   ACTIONS 399 [anon_sym_LBRACK]; ACTIONS 401 [anon_sym_LPAREN];
   ACTIONS 403 [aux_sym__literalString_token1]; ACTIONS 405 [anon_sym_POUND];
   ACTIONS 407 [aux_sym__literalInt_token1]; ACTIONS 409 [aux_sym__literalInt_token2;
   aux_sym__literalInt_token3]; ACTIONS 407 [aux_sym__literalFloat_token1];
   ACTIONS 411 [aux_sym_ppUsesBlock_token1]; ACTIONS 413 [sym_kAdd; sym_kSub];
   ACTIONS 415 [sym_kAt]; ACTIONS 417 [sym_kTrue; sym_kFalse]; ACTIONS 419 [sym_labelNumber];
   ACTIONS 3 [sym__space]; ACTIONS 5 [sym_ppDirective]; ACTIONS 3 [sym_comment];
   ACTIONS 417 [sym_ppFragmentExpr]; ACTIONS 397 [sym_ppFragmentStmt];
   ACTIONS 403 [sym__literalStringMultiline]; ACTIONS 421 [sym_identifier];
   ACTIONS 423 [sym_kSpecialize]; ACTIONS 425 [sym_kOn]; ACTIONS 427 [sym_kAsm];
   ACTIONS 429 [sym_kBegin]; ACTIONS 431 [sym_kCase]; ACTIONS 433 [sym_kConst];
   ACTIONS 561 [sym_kEnd]; ACTIONS 437 [sym_kFor]; ACTIONS 439 [sym_kFunction];
   ACTIONS 441 [sym_kGoto]; ACTIONS 443 [sym_kIf]; ACTIONS 445 [sym_kInherited];
   ACTIONS 417 [sym_kNil]; ACTIONS 415 [sym_kNot]; ACTIONS 439 [sym_kProcedure];
   ACTIONS 447 [sym_kRaise]; ACTIONS 449 [sym_kRepeat]; ACTIONS 451 [sym_kString];
   ACTIONS 453 [sym_kTry]; ACTIONS 455 [sym_kVar]; ACTIONS 457 [sym_kWhile];
   ACTIONS 459 [sym_kWith]].

(** State 111. *)
Definition ts_parse_table_111 : parse_row :=
  [STATE 6213 [sym_if]; STATE 6327 [sym_ifElse; sym_while; sym_repeat; sym_for; sym_foreach];
   STATE 12104 [sym_exceptionHandler]; STATE 6327 [sym_try; sym_case; sym_block; sym_asm;
   sym_with; sym_raise; sym_statement; sym_goto; sym__statement]; STATE 15991 [sym_ifTr;
   sym_ifElseTr; sym_whileTr; sym_repeatTr; sym_forTr; sym_foreachTr];
   STATE 12526 [sym_exceptionHandlerTr]; STATE 14198 [sym__exceptionHandlersTr];
   STATE 15991 [sym_tryTr; sym_caseTr]; STATE 14251 [sym_blockTr]; STATE 15991 [sym_asmTr;
   sym_withTr; sym_raiseTr; sym_statementTr; sym_gotoTr; sym__statementTr];
   STATE 13915 [sym_assignment]; STATE 11785 [sym_varAssignDef]; STATE 13915 [sym_varDef;
   sym_constDef]; STATE 6166 [sym_label]; STATE 15991 [sym__statementsTr];
   STATE 14198 [sym_statementsTr]; STATE 8019 [sym__expr; sym_exprConditional];
   STATE 7478 [sym__ref; sym_lambda; sym_inherited; sym_exprDot; sym_exprDeref; sym_exprAs;
   sym_exprTpl; sym_exprSubscript; sym_exprCall]; STATE 8019 [sym_exprBinary; sym_exprUnary];
   STATE 7478 [sym_exprParens; sym_exprBrackets; sym__literal; sym_literalString];
   STATE 6664 [sym__literalString; sym_literalChar]; STATE 7478 [sym_literalNumber];
   STATE 7742 [sym__literalInt; sym__literalFloat]; STATE 1380 [sym__ppIf];
   STATE 6327 [sym__ppStatementBlock]; STATE 11840 [aux_sym_labeledStatement_repeat1];
   STATE 12159 [aux_sym__exceptionHandlersTr_repeat1]; STATE 863 [aux_sym__statementsTr_repeat1];
   STATE 6664 [aux_sym_literalString_repeat1]; ACTIONS 397 [anon_sym_SEMI];
   ACTIONS 399 [anon_sym_LBRACK]; ACTIONS 401 [anon_sym_LPAREN];
   ACTIONS 403 [aux_sym__literalString_token1]; ACTIONS 405 [anon_sym_POUND];
   ACTIONS 407 [aux_sym__literalInt_token1]; ACTIONS 409 [aux_sym__literalInt_token2;
   aux_sym__literalInt_token3]; ACTIONS 407 [aux_sym__literalFloat_token1];
   ACTIONS 411 [aux_sym_ppUsesBlock_token1]; ACTIONS 413 [sym_kAdd; sym_kSub];
   ACTIONS 415 [sym_kAt]; ACTIONS 417 [sym_kTrue; sym_kFalse]; ACTIONS 419 [sym_labelNumber];
   ACTIONS 3 [sym__space]; ACTIONS 5 [sym_ppDirective]; ACTIONS 3 [sym_comment];
   ACTIONS 417 [sym_ppFragmentExpr]; ACTIONS 397 [sym_ppFragmentStmt];
   ACTIONS 403 [sym__literalStringMultiline]; ACTIONS 421 [sym_identifier];
   ACTIONS 423 [sym_kSpecialize]; ACTIONS 425 [sym_kOn]; ACTIONS 427 [sym_kAsm];
   ACTIONS 429 [sym_kBegin]; ACTIONS 431 [sym_kCase]; ACTIONS 433 [sym_kConst];
   ACTIONS 563 [sym_kEnd]; ACTIONS 437 [sym_kFor]; ACTIONS 439 [sym_kFunction];
   ACTIONS 441 [sym_kGoto]; ACTIONS 443 [sym_kIf]; ACTIONS 445 [sym_kInherited];
   ACTIONS 417 [sym_kNil]; ACTIONS 415 [sym_kNot]; ACTIONS 439 [sym_kProcedure];
   ACTIONS 447 [sym_kRaise]; ACTIONS 449 [sym_kRepeat]; ACTIONS 451 [sym_kString];
   ACTIONS 453 [sym_kTry]; ACTIONS 455 [sym_kVar]; ACTIONS 457 [sym_kWhile];
   ACTIONS 459 [sym_kWith]].

(** State 112. *)
Definition ts_parse_table_112 : parse_row :=
  [STATE 6213 [sym_if]; STATE 6327 [sym_ifElse; sym_while; sym_repeat; sym_for; sym_foreach];
   STATE 12104 [sym_exceptionHandler]; STATE 6327 [sym_try; sym_case; sym_block; sym_asm;
   sym_with; sym_raise; sym_statement; sym_goto; sym__statement]; STATE 15991 [sym_ifTr;
   sym_ifElseTr; sym_whileTr; sym_repeatTr; sym_forTr; sym_foreachTr];
   STATE 12526 [sym_exceptionHandlerTr]; STATE 14230 [sym__exceptionHandlersTr];
   STATE 15991 [sym_tryTr; sym_caseTr]; STATE 14251 [sym_blockTr]; STATE 15991 [sym_asmTr;
   sym_withTr; sym_raiseTr; sym_statementTr; sym_gotoTr; sym__statementTr];
   STATE 13915 [sym_assignment]; STATE 11785 [sym_varAssignDef]; STATE 13915 [sym_varDef;
   sym_constDef]; STATE 6166 [sym_label]; STATE 15991 [sym__statementsTr];
   STATE 14230 [sym_statementsTr]; STATE 8019 [sym__expr; sym_exprConditional];
   STATE 7478 [sym__ref; sym_lambda; sym_inherited; sym_exprDot; sym_exprDeref; sym_exprAs;
   sym_exprTpl; sym_exprSubscript; sym_exprCall]; STATE 8019 [sym_exprBinary; sym_exprUnary];
   STATE 7478 [sym_exprParens; sym_exprBrackets; sym__literal; sym_literalString];
   STATE 6664 [sym__literalString; sym_literalChar]; STATE 7478 [sym_literalNumber];
   STATE 7742 [sym__literalInt; sym__literalFloat]; STATE 1380 [sym__ppIf];
   STATE 6327 [sym__ppStatementBlock]; STATE 11840 [aux_sym_labeledStatement_repeat1];
   STATE 12159 [aux_sym__exceptionHandlersTr_repeat1]; STATE 863 [aux_sym__statementsTr_repeat1];
   STATE 6664 [aux_sym_literalString_repeat1]; ACTIONS 397 [anon_sym_SEMI];
   ACTIONS 399 [anon_sym_LBRACK]; ACTIONS 401 [anon_sym_LPAREN];
   ACTIONS 403 [aux_sym__literalString_token1]; ACTIONS 405 [anon_sym_POUND];
   ACTIONS 407 [aux_sym__literalInt_token1]; ACTIONS 409 [aux_sym__literalInt_token2;
   aux_sym__literalInt_token3]; ACTIONS 407 [aux_sym__literalFloat_token1];
   ACTIONS 411 [aux_sym_ppUsesBlock_token1]; ACTIONS 413 [sym_kAdd; sym_kSub];
   ACTIONS 415 [sym_kAt]; ACTIONS 417 [sym_kTrue; sym_kFalse]; ACTIONS 419 [sym_labelNumber];
   ACTIONS 3 [sym__space]; ACTIONS 5 [sym_ppDirective]; ACTIONS 3 [sym_comment];
   ACTIONS 417 [sym_ppFragmentExpr]; ACTIONS 397 [sym_ppFragmentStmt];
   ACTIONS 403 [sym__literalStringMultiline]; ACTIONS 421 [sym_identifier];
   ACTIONS 423 [sym_kSpecialize]; ACTIONS 425 [sym_kOn]; ACTIONS 427 [sym_kAsm];
   ACTIONS 429 [sym_kBegin]; ACTIONS 431 [sym_kCase]; ACTIONS 433 [sym_kConst];
   ACTIONS 565 [sym_kEnd]; ACTIONS 437 [sym_kFor]; ACTIONS 439 [sym_kFunction];
   ACTIONS 441 [sym_kGoto]; ACTIONS 443 [sym_kIf]; ACTIONS 445 [sym_kInherited];
   ACTIONS 417 [sym_kNil]; ACTIONS 415 [sym_kNot]; ACTIONS 439 [sym_kProcedure];
   ACTIONS 447 [sym_kRaise]; ACTIONS 449 [sym_kRepeat]; ACTIONS 451 [sym_kString];
   ACTIONS 453 [sym_kTry]; ACTIONS 455 [sym_kVar]; ACTIONS 457 [sym_kWhile];
   ACTIONS 459 [sym_kWith]].

(** State 113. *)
Definition ts_parse_table_113 : parse_row :=
  [STATE 6213 [sym_if]; STATE 6327 [sym_ifElse; sym_while; sym_repeat; sym_for; sym_foreach];
   STATE 12104 [sym_exceptionHandler]; STATE 6327 [sym_try; sym_case; sym_block; sym_asm;
   sym_with; sym_raise; sym_statement; sym_goto; sym__statement]; STATE 15991 [sym_ifTr;
   sym_ifElseTr; sym_whileTr; sym_repeatTr; sym_forTr; sym_foreachTr];
   STATE 12526 [sym_exceptionHandlerTr]; STATE 15780 [sym__exceptionHandlersTr];
   STATE 15991 [sym_tryTr; sym_caseTr]; STATE 14251 [sym_blockTr]; STATE 15991 [sym_asmTr;
   sym_withTr; sym_raiseTr; sym_statementTr; sym_gotoTr; sym__statementTr];
   STATE 13915 [sym_assignment]; STATE 11785 [sym_varAssignDef]; STATE 13915 [sym_varDef;
   sym_constDef]; STATE 6166 [sym_label]; STATE 15991 [sym__statementsTr];
   STATE 15780 [sym_statementsTr]; STATE 8019 [sym__expr; sym_exprConditional];
   STATE 7478 [sym__ref; sym_lambda; sym_inherited; sym_exprDot; sym_exprDeref; sym_exprAs;
   sym_exprTpl; sym_exprSubscript; sym_exprCall]; STATE 8019 [sym_exprBinary; sym_exprUnary];
   STATE 7478 [sym_exprParens; sym_exprBrackets; sym__literal; sym_literalString];
   STATE 6664 [sym__literalString; sym_literalChar]; STATE 7478 [sym_literalNumber];
   STATE 7742 [sym__literalInt; sym__literalFloat]; STATE 1380 [sym__ppIf];
   STATE 6327 [sym__ppStatementBlock]; STATE 11840 [aux_sym_labeledStatement_repeat1];
   STATE 12159 [aux_sym__exceptionHandlersTr_repeat1]; STATE 863 [aux_sym__statementsTr_repeat1];
   STATE 6664 [aux_sym_literalString_repeat1]; ACTIONS 397 [anon_sym_SEMI];
   ACTIONS 399 [anon_sym_LBRACK]; ACTIONS 401 [anon_sym_LPAREN];
   ACTIONS 403 [aux_sym__literalString_token1]; ACTIONS 405 [anon_sym_POUND];
   ACTIONS 407 [aux_sym__literalInt_token1]; ACTIONS 409 [aux_sym__literalInt_token2;
   aux_sym__literalInt_token3]; ACTIONS 407 [aux_sym__literalFloat_token1];
   ACTIONS 411 [aux_sym_ppUsesBlock_token1]; ACTIONS 413 [sym_kAdd; sym_kSub];
   ACTIONS 415 [sym_kAt]; ACTIONS 417 [sym_kTrue; sym_kFalse]; ACTIONS 419 [sym_labelNumber];
   ACTIONS 3 [sym__space]; ACTIONS 5 [sym_ppDirective]; ACTIONS 3 [sym_comment];
   ACTIONS 417 [sym_ppFragmentExpr]; ACTIONS 397 [sym_ppFragmentStmt];
   ACTIONS 403 [sym__literalStringMultiline]; ACTIONS 421 [sym_identifier];
   ACTIONS 423 [sym_kSpecialize]; ACTIONS 425 [sym_kOn]; ACTIONS 427 [sym_kAsm];
   ACTIONS 429 [sym_kBegin]; ACTIONS 431 [sym_kCase]; ACTIONS 433 [sym_kConst];
   ACTIONS 567 [sym_kEnd]; ACTIONS 437 [sym_kFor]; ACTIONS 439 [sym_kFunction];
   ACTIONS 441 [sym_kGoto]; ACTIONS 443 [sym_kIf]; ACTIONS 445 [sym_kInherited];
   ACTIONS 417 [sym_kNil]; ACTIONS 415 [sym_kNot]; ACTIONS 439 [sym_kProcedure];
   ACTIONS 447 [sym_kRaise]; ACTIONS 449 [sym_kRepeat]; ACTIONS 451 [sym_kString];
   ACTIONS 453 [sym_kTry]; ACTIONS 455 [sym_kVar]; ACTIONS 457 [sym_kWhile];
   ACTIONS 459 [sym_kWith]].

(** State 114. *)
Definition ts_parse_table_114 : parse_row :=
  [STATE 6213 [sym_if]; STATE 6327 [sym_ifElse; sym_while; sym_repeat; sym_for; sym_foreach];
   STATE 12104 [sym_exceptionHandler]; STATE 6327 [sym_try; sym_case; sym_block; sym_asm;
   sym_with; sym_raise; sym_statement; sym_goto; sym__statement]; STATE 15991 [sym_ifTr;
   sym_ifElseTr; sym_whileTr; sym_repeatTr; sym_forTr; sym_foreachTr];
   STATE 12526 [sym_exceptionHandlerTr]; STATE 15578 [sym__exceptionHandlersTr];
   STATE 15991 [sym_tryTr; sym_caseTr]; STATE 14251 [sym_blockTr]; STATE 15991 [sym_asmTr;
   sym_withTr; sym_raiseTr; sym_statementTr; sym_gotoTr; sym__statementTr];
   STATE 13915 [sym_assignment]; STATE 11785 [sym_varAssignDef]; STATE 13915 [sym_varDef;
   sym_constDef]; STATE 6166 [sym_label]; STATE 15991 [sym__statementsTr];
   STATE 15578 [sym_statementsTr]; STATE 8019 [sym__expr; sym_exprConditional];
   STATE 7478 [sym__ref; sym_lambda; sym_inherited; sym_exprDot; sym_exprDeref; sym_exprAs;
   sym_exprTpl; sym_exprSubscript; sym_exprCall]; STATE 8019 [sym_exprBinary; sym_exprUnary];
   STATE 7478 [sym_exprParens; sym_exprBrackets; sym__literal; sym_literalString];
   STATE 6664 [sym__literalString; sym_literalChar]; STATE 7478 [sym_literalNumber];
   STATE 7742 [sym__literalInt; sym__literalFloat]; STATE 1380 [sym__ppIf];
   STATE 6327 [sym__ppStatementBlock]; STATE 11840 [aux_sym_labeledStatement_repeat1];
   STATE 12159 [aux_sym__exceptionHandlersTr_repeat1]; STATE 863 [aux_sym__statementsTr_repeat1];
   STATE 6664 [aux_sym_literalString_repeat1]; ACTIONS 397 [anon_sym_SEMI];
   ACTIONS 399 [anon_sym_LBRACK]; ACTIONS 401 [anon_sym_LPAREN];
   ACTIONS 403 [aux_sym__literalString_token1]; ACTIONS 405 [anon_sym_POUND];
   ACTIONS 407 [aux_sym__literalInt_token1]; ACTIONS 409 [aux_sym__literalInt_token2;
   aux_sym__literalInt_token3]; ACTIONS 407 [aux_sym__literalFloat_token1];
   ACTIONS 411 [aux_sym_ppUsesBlock_token1]; ACTIONS 413 [sym_kAdd; sym_kSub];
   ACTIONS 415 [sym_kAt]; ACTIONS 417 [sym_kTrue; sym_kFalse]; ACTIONS 419 [sym_labelNumber];
   ACTIONS 3 [sym__space]; ACTIONS 5 [sym_ppDirective]; ACTIONS 3 [sym_comment];
   ACTIONS 417 [sym_ppFragmentExpr]; ACTIONS 397 [sym_ppFragmentStmt];
   ACTIONS 403 [sym__literalStringMultiline]; ACTIONS 421 [sym_identifier];
   ACTIONS 423 [sym_kSpecialize]; ACTIONS 425 [sym_kOn]; ACTIONS 427 [sym_kAsm];
   ACTIONS 429 [sym_kBegin]; ACTIONS 431 [sym_kCase]; ACTIONS 433 [sym_kConst];
   ACTIONS 569 [sym_kEnd]; ACTIONS 437 [sym_kFor]; ACTIONS 439 [sym_kFunction];
   ACTIONS 441 [sym_kGoto]; ACTIONS 443 [sym_kIf]; ACTIONS 445 [sym_kInherited];
   ACTIONS 417 [sym_kNil]; ACTIONS 415 [sym_kNot]; ACTIONS 439 [sym_kProcedure];
   ACTIONS 447 [sym_kRaise]; ACTIONS 449 [sym_kRepeat]; ACTIONS 451 [sym_kString];
   ACTIONS 453 [sym_kTry]; ACTIONS 455 [sym_kVar]; ACTIONS 457 [sym_kWhile];
   ACTIONS 459 [sym_kWith]].

(** State 115. *)
Definition ts_parse_table_115 : parse_row :=
  [STATE 6213 [sym_if]; STATE 6327 [sym_ifElse; sym_while; sym_repeat; sym_for; sym_foreach];
   STATE 12104 [sym_exceptionHandler]; STATE 6327 [sym_try; sym_case; sym_block; sym_asm;
   sym_with; sym_raise; sym_statement; sym_goto; sym__statement]; STATE 15991 [sym_ifTr;
   sym_ifElseTr; sym_whileTr; sym_repeatTr; sym_forTr; sym_foreachTr];
   STATE 12526 [sym_exceptionHandlerTr]; STATE 15637 [sym__exceptionHandlersTr];
   STATE 15991 [sym_tryTr; sym_caseTr]; STATE 14251 [sym_blockTr]; STATE 15991 [sym_asmTr;
   sym_withTr; sym_raiseTr; sym_statementTr; sym_gotoTr; sym__statementTr];
   STATE 13915 [sym_assignment]; STATE 11785 [sym_varAssignDef]; STATE 13915 [sym_varDef;
   sym_constDef]; STATE 6166 [sym_label]; STATE 15991 [sym__statementsTr];
   STATE 15637 [sym_statementsTr]; STATE 8019 [sym__expr; sym_exprConditional];
   STATE 7478 [sym__ref; sym_lambda; sym_inherited; sym_exprDot; sym_exprDeref; sym_exprAs;
   sym_exprTpl; sym_exprSubscript; sym_exprCall]; STATE 8019 [sym_exprBinary; sym_exprUnary];
   STATE 7478 [sym_exprParens; sym_exprBrackets; sym__literal; sym_literalString];
   STATE 6664 [sym__literalString; sym_literalChar]; STATE 7478 [sym_literalNumber];
   STATE 7742 [sym__literalInt; sym__literalFloat]; STATE 1380 [sym__ppIf];
   STATE 6327 [sym__ppStatementBlock]; STATE 11840 [aux_sym_labeledStatement_repeat1];
   STATE 12159 [aux_sym__exceptionHandlersTr_repeat1]; STATE 863 [aux_sym__statementsTr_repeat1];
   STATE 6664 [aux_sym_literalString_repeat1]; ACTIONS 397 [anon_sym_SEMI];
   ACTIONS 399 [anon_sym_LBRACK]; ACTIONS 401 [anon_sym_LPAREN];
   ACTIONS 403 [aux_sym__literalString_token1]; ACTIONS 405 [anon_sym_POUND];
   ACTIONS 407 [aux_sym__literalInt_token1]; ACTIONS 409 [aux_sym__literalInt_token2;
   aux_sym__literalInt_token3]; ACTIONS 407 [aux_sym__literalFloat_token1];
   ACTIONS 411 [aux_sym_ppUsesBlock_token1]; ACTIONS 413 [sym_kAdd; sym_kSub];
   ACTIONS 415 [sym_kAt]; ACTIONS 417 [sym_kTrue; sym_kFalse]; ACTIONS 419 [sym_labelNumber];
   ACTIONS 3 [sym__space]; ACTIONS 5 [sym_ppDirective]; ACTIONS 3 [sym_comment];
   ACTIONS 417 [sym_ppFragmentExpr]; ACTIONS 397 [sym_ppFragmentStmt];
   ACTIONS 403 [sym__literalStringMultiline]; ACTIONS 421 [sym_identifier];
   ACTIONS 423 [sym_kSpecialize]; ACTIONS 425 [sym_kOn]; ACTIONS 427 [sym_kAsm];
   ACTIONS 429 [sym_kBegin]; ACTIONS 431 [sym_kCase]; ACTIONS 433 [sym_kConst];
   ACTIONS 571 [sym_kEnd]; ACTIONS 437 [sym_kFor]; ACTIONS 439 [sym_kFunction];
   ACTIONS 441 [sym_kGoto]; ACTIONS 443 [sym_kIf]; ACTIONS 445 [sym_kInherited];
   ACTIONS 417 [sym_kNil]; ACTIONS 415 [sym_kNot]; ACTIONS 439 [sym_kProcedure];
   ACTIONS 447 [sym_kRaise]; ACTIONS 449 [sym_kRepeat]; ACTIONS 451 [sym_kString];
   ACTIONS 453 [sym_kTry]; ACTIONS 455 [sym_kVar]; ACTIONS 457 [sym_kWhile];
   ACTIONS 459 [sym_kWith]].

(** State 116. *)
Definition ts_parse_table_116 : parse_row :=
  [STATE 6213 [sym_if]; STATE 6327 [sym_ifElse; sym_while; sym_repeat; sym_for; sym_foreach];
   STATE 12104 [sym_exceptionHandler]; STATE 6327 [sym_try; sym_case; sym_block; sym_asm;
   sym_with; sym_raise; sym_statement; sym_goto; sym__statement]; STATE 15991 [sym_ifTr;
   sym_ifElseTr; sym_whileTr; sym_repeatTr; sym_forTr; sym_foreachTr];
   STATE 12526 [sym_exceptionHandlerTr]; STATE 15255 [sym__exceptionHandlersTr];
   STATE 15991 [sym_tryTr; sym_caseTr]; STATE 14251 [sym_blockTr]; STATE 15991 [sym_asmTr;
   sym_withTr; sym_raiseTr; sym_statementTr; sym_gotoTr; sym__statementTr];
   STATE 13915 [sym_assignment]; STATE 11785 [sym_varAssignDef]; STATE 13915 [sym_varDef;
   sym_constDef]; STATE 6166 [sym_label]; STATE 15991 [sym__statementsTr];
   STATE 15255 [sym_statementsTr]; STATE 8019 [sym__expr; sym_exprConditional];
   STATE 7478 [sym__ref; sym_lambda; sym_inherited; sym_exprDot; sym_exprDeref; sym_exprAs;
   sym_exprTpl; sym_exprSubscript; sym_exprCall]; STATE 8019 [sym_exprBinary; sym_exprUnary];
   STATE 7478 [sym_exprParens; sym_exprBrackets; sym__literal; sym_literalString];
   STATE 6664 [sym__literalString; sym_literalChar]; STATE 7478 [sym_literalNumber];
   STATE 7742 [sym__literalInt; sym__literalFloat]; STATE 1380 [sym__ppIf];
   STATE 6327 [sym__ppStatementBlock]; STATE 11840 [aux_sym_labeledStatement_repeat1];
   STATE 12159 [aux_sym__exceptionHandlersTr_repeat1]; STATE 863 [aux_sym__statementsTr_repeat1];
   STATE 6664 [aux_sym_literalString_repeat1]; ACTIONS 397 [anon_sym_SEMI];
   ACTIONS 399 [anon_sym_LBRACK]; ACTIONS 401 [anon_sym_LPAREN];
   ACTIONS 403 [aux_sym__literalString_token1]; ACTIONS 405 [anon_sym_POUND];
   ACTIONS 407 [aux_sym__literalInt_token1]; ACTIONS 409 [aux_sym__literalInt_token2;
   aux_sym__literalInt_token3]; ACTIONS 407 [aux_sym__literalFloat_token1];
   ACTIONS 411 [aux_sym_ppUsesBlock_token1]; ACTIONS 413 [sym_kAdd; sym_kSub];
   ACTIONS 415 [sym_kAt]; ACTIONS 417 [sym_kTrue; sym_kFalse]; ACTIONS 419 [sym_labelNumber];
   ACTIONS 3 [sym__space]; ACTIONS 5 [sym_ppDirective]; ACTIONS 3 [sym_comment];
   ACTIONS 417 [sym_ppFragmentExpr]; ACTIONS 397 [sym_ppFragmentStmt];
   ACTIONS 403 [sym__literalStringMultiline]; ACTIONS 421 [sym_identifier];
   ACTIONS 423 [sym_kSpecialize]; ACTIONS 425 [sym_kOn]; ACTIONS 427 [sym_kAsm];
   ACTIONS 429 [sym_kBegin]; ACTIONS 431 [sym_kCase]; ACTIONS 433 [sym_kConst];
   ACTIONS 573 [sym_kEnd]; ACTIONS 437 [sym_kFor]; ACTIONS 439 [sym_kFunction];
   ACTIONS 441 [sym_kGoto]; ACTIONS 443 [sym_kIf]; ACTIONS 445 [sym_kInherited];
   ACTIONS 417 [sym_kNil]; ACTIONS 415 [sym_kNot]; ACTIONS 439 [sym_kProcedure];
   ACTIONS 447 [sym_kRaise]; ACTIONS 449 [sym_kRepeat]; ACTIONS 451 [sym_kString];
   ACTIONS 453 [sym_kTry]; ACTIONS 455 [sym_kVar]; ACTIONS 457 [sym_kWhile];
   ACTIONS 459 [sym_kWith]].

(** State 117. *)
Definition ts_parse_table_117 : parse_row :=
  [STATE 6213 [sym_if]; STATE 6327 [sym_ifElse; sym_while; sym_repeat; sym_for; sym_foreach];
   STATE 12104 [sym_exceptionHandler]; STATE 6327 [sym_try; sym_case; sym_block; sym_asm;
   sym_with; sym_raise; sym_statement; sym_goto; sym__statement]; STATE 15991 [sym_ifTr;
   sym_ifElseTr; sym_whileTr; sym_repeatTr; sym_forTr; sym_foreachTr];
   STATE 12526 [sym_exceptionHandlerTr]; STATE 15884 [sym__exceptionHandlersTr];
   STATE 15991 [sym_tryTr; sym_caseTr]; STATE 14251 [sym_blockTr]; STATE 15991 [sym_asmTr;
   sym_withTr; sym_raiseTr; sym_statementTr; sym_gotoTr; sym__statementTr];
   STATE 13915 [sym_assignment]; STATE 11785 [sym_varAssignDef]; STATE 13915 [sym_varDef;
   sym_constDef]; STATE 6166 [sym_label]; STATE 15991 [sym__statementsTr];
   STATE 15884 [sym_statementsTr]; STATE 8019 [sym__expr; sym_exprConditional];
   STATE 7478 [sym__ref; sym_lambda; sym_inherited; sym_exprDot; sym_exprDeref; sym_exprAs;
   sym_exprTpl; sym_exprSubscript; sym_exprCall]; STATE 8019 [sym_exprBinary; sym_exprUnary];
   STATE 7478 [sym_exprParens; sym_exprBrackets; sym__literal; sym_literalString];
   STATE 6664 [sym__literalString; sym_literalChar]; STATE 7478 [sym_literalNumber];
   STATE 7742 [sym__literalInt; sym__literalFloat]; STATE 1380 [sym__ppIf];
   STATE 6327 [sym__ppStatementBlock]; STATE 11840 [aux_sym_labeledStatement_repeat1];
   STATE 12159 [aux_sym__exceptionHandlersTr_repeat1]; STATE 863 [aux_sym__statementsTr_repeat1];
   STATE 6664 [aux_sym_literalString_repeat1]; ACTIONS 397 [anon_sym_SEMI];
   ACTIONS 399 [anon_sym_LBRACK]; ACTIONS 401 [anon_sym_LPAREN];
   ACTIONS 403 [aux_sym__literalString_token1]; ACTIONS 405 [anon_sym_POUND];
   ACTIONS 407 [aux_sym__literalInt_token1]; ACTIONS 409 [aux_sym__literalInt_token2;
   aux_sym__literalInt_token3]; ACTIONS 407 [aux_sym__literalFloat_token1];
   ACTIONS 411 [aux_sym_ppUsesBlock_token1]; ACTIONS 413 [sym_kAdd; sym_kSub];
   ACTIONS 415 [sym_kAt]; ACTIONS 417 [sym_kTrue; sym_kFalse]; ACTIONS 419 [sym_labelNumber];
   ACTIONS 3 [sym__space]; ACTIONS 5 [sym_ppDirective]; ACTIONS 3 [sym_comment];
   ACTIONS 417 [sym_ppFragmentExpr]; ACTIONS 397 [sym_ppFragmentStmt];
   ACTIONS 403 [sym__literalStringMultiline]; ACTIONS 421 [sym_identifier];
   ACTIONS 423 [sym_kSpecialize]; ACTIONS 425 [sym_kOn]; ACTIONS 427 [sym_kAsm];
   ACTIONS 429 [sym_kBegin]; ACTIONS 431 [sym_kCase]; ACTIONS 433 [sym_kConst];
   ACTIONS 575 [sym_kEnd]; ACTIONS 437 [sym_kFor]; ACTIONS 439 [sym_kFunction];
   ACTIONS 441 [sym_kGoto]; ACTIONS 443 [sym_kIf]; ACTIONS 445 [sym_kInherited];
   ACTIONS 417 [sym_kNil]; ACTIONS 415 [sym_kNot]; ACTIONS 439 [sym_kProcedure];
   ACTIONS 447 [sym_kRaise]; ACTIONS 449 [sym_kRepeat]; ACTIONS 451 [sym_kString];
   ACTIONS 453 [sym_kTry]; ACTIONS 455 [sym_kVar]; ACTIONS 457 [sym_kWhile];
   ACTIONS 459 [sym_kWith]].

(** State 118. *)
Definition ts_parse_table_118 : parse_row :=
  [STATE 6213 [sym_if]; STATE 6327 [sym_ifElse; sym_while; sym_repeat; sym_for; sym_foreach];
   STATE 12104 [sym_exceptionHandler]; STATE 6327 [sym_try; sym_case; sym_block; sym_asm;
   sym_with; sym_raise; sym_statement; sym_goto; sym__statement]; STATE 15991 [sym_ifTr;
   sym_ifElseTr; sym_whileTr; sym_repeatTr; sym_forTr; sym_foreachTr];
   STATE 12526 [sym_exceptionHandlerTr]; STATE 15935 [sym__exceptionHandlersTr];
   STATE 15991 [sym_tryTr; sym_caseTr]; STATE 14251 [sym_blockTr]; STATE 15991 [sym_asmTr;
   sym_withTr; sym_raiseTr; sym_statementTr; sym_gotoTr; sym__statementTr];
   STATE 13915 [sym_assignment]; STATE 11785 [sym_varAssignDef]; STATE 13915 [sym_varDef;
   sym_constDef]; STATE 6166 [sym_label]; STATE 15991 [sym__statementsTr];
   STATE 15935 [sym_statementsTr]; STATE 8019 [sym__expr; sym_exprConditional];
   STATE 7478 [sym__ref; sym_lambda; sym_inherited; sym_exprDot; sym_exprDeref; sym_exprAs;
   sym_exprTpl; sym_exprSubscript; sym_exprCall]; STATE 8019 [sym_exprBinary; sym_exprUnary];
   STATE 7478 [sym_exprParens; sym_exprBrackets; sym__literal; sym_literalString];
   STATE 6664 [sym__literalString; sym_literalChar]; STATE 7478 [sym_literalNumber];
   STATE 7742 [sym__literalInt; sym__literalFloat]; STATE 1380 [sym__ppIf];
   STATE 6327 [sym__ppStatementBlock]; STATE 11840 [aux_sym_labeledStatement_repeat1];
   STATE 12159 [aux_sym__exceptionHandlersTr_repeat1]; STATE 863 [aux_sym__statementsTr_repeat1];
   STATE 6664 [aux_sym_literalString_repeat1]; ACTIONS 397 [anon_sym_SEMI];
   ACTIONS 399 [anon_sym_LBRACK]; ACTIONS 401 [anon_sym_LPAREN];
   ACTIONS 403 [aux_sym__literalString_token1]; ACTIONS 405 [anon_sym_POUND];
   ACTIONS 407 [aux_sym__literalInt_token1]; ACTIONS 409 [aux_sym__literalInt_token2;
   aux_sym__literalInt_token3]; ACTIONS 407 [aux_sym__literalFloat_token1];
   ACTIONS 411 [aux_sym_ppUsesBlock_token1]; ACTIONS 413 [sym_kAdd; sym_kSub];
   ACTIONS 415 [sym_kAt]; ACTIONS 417 [sym_kTrue; sym_kFalse]; ACTIONS 419 [sym_labelNumber];
   ACTIONS 3 [sym__space]; ACTIONS 5 [sym_ppDirective]; ACTIONS 3 [sym_comment];
   ACTIONS 417 [sym_ppFragmentExpr]; ACTIONS 397 [sym_ppFragmentStmt];
   ACTIONS 403 [sym__literalStringMultiline]; ACTIONS 421 [sym_identifier];
   ACTIONS 423 [sym_kSpecialize]; ACTIONS 425 [sym_kOn]; ACTIONS 427 [sym_kAsm];
   ACTIONS 429 [sym_kBegin]; ACTIONS 431 [sym_kCase]; ACTIONS 433 [sym_kConst];
   ACTIONS 577 [sym_kEnd]; ACTIONS 437 [sym_kFor]; ACTIONS 439 [sym_kFunction];
   ACTIONS 441 [sym_kGoto]; ACTIONS 443 [sym_kIf]; ACTIONS 445 [sym_kInherited];
   ACTIONS 417 [sym_kNil]; ACTIONS 415 [sym_kNot]; ACTIONS 439 [sym_kProcedure];
   ACTIONS 447 [sym_kRaise]; ACTIONS 449 [sym_kRepeat]; ACTIONS 451 [sym_kString];
   ACTIONS 453 [sym_kTry]; ACTIONS 455 [sym_kVar]; ACTIONS 457 [sym_kWhile];
   ACTIONS 459 [sym_kWith]].

(** State 119. *)
Definition ts_parse_table_119 : parse_row :=
  [STATE 6213 [sym_if]; STATE 6327 [sym_ifElse; sym_while; sym_repeat; sym_for; sym_foreach];
   STATE 12104 [sym_exceptionHandler]; STATE 6327 [sym_try; sym_case; sym_block; sym_asm;
   sym_with; sym_raise; sym_statement; sym_goto; sym__statement]; STATE 15991 [sym_ifTr;
   sym_ifElseTr; sym_whileTr; sym_repeatTr; sym_forTr; sym_foreachTr];
   STATE 12526 [sym_exceptionHandlerTr]; STATE 15323 [sym__exceptionHandlersTr];
   STATE 15991 [sym_tryTr; sym_caseTr]; STATE 14251 [sym_blockTr]; STATE 15991 [sym_asmTr;
   sym_withTr; sym_raiseTr; sym_statementTr; sym_gotoTr; sym__statementTr];
   STATE 13915 [sym_assignment]; STATE 11785 [sym_varAssignDef]; STATE 13915 [sym_varDef;
   sym_constDef]; STATE 6166 [sym_label]; STATE 15991 [sym__statementsTr];
   STATE 15323 [sym_statementsTr]; STATE 8019 [sym__expr; sym_exprConditional];
   STATE 7478 [sym__ref; sym_lambda; sym_inherited; sym_exprDot; sym_exprDeref; sym_exprAs;
   sym_exprTpl; sym_exprSubscript; sym_exprCall]; STATE 8019 [sym_exprBinary; sym_exprUnary];
   STATE 7478 [sym_exprParens; sym_exprBrackets; sym__literal; sym_literalString];
   STATE 6664 [sym__literalString; sym_literalChar]; STATE 7478 [sym_literalNumber];
   STATE 7742 [sym__literalInt; sym__literalFloat]; STATE 1380 [sym__ppIf];
   STATE 6327 [sym__ppStatementBlock]; STATE 11840 [aux_sym_labeledStatement_repeat1];
   STATE 12159 [aux_sym__exceptionHandlersTr_repeat1]; STATE 863 [aux_sym__statementsTr_repeat1];
   STATE 6664 [aux_sym_literalString_repeat1]; ACTIONS 397 [anon_sym_SEMI];
   ACTIONS 399 [anon_sym_LBRACK]; ACTIONS 401 [anon_sym_LPAREN];
   ACTIONS 403 [aux_sym__literalString_token1]; ACTIONS 405 [anon_sym_POUND];
   ACTIONS 407 [aux_sym__literalInt_token1]; ACTIONS 409 [aux_sym__literalInt_token2;
   aux_sym__literalInt_token3]; ACTIONS 407 [aux_sym__literalFloat_token1];
   ACTIONS 411 [aux_sym_ppUsesBlock_token1]; ACTIONS 413 [sym_kAdd; sym_kSub];
   ACTIONS 415 [sym_kAt]; ACTIONS 417 [sym_kTrue; sym_kFalse]; ACTIONS 419 [sym_labelNumber];
   ACTIONS 3 [sym__space]; ACTIONS 5 [sym_ppDirective]; ACTIONS 3 [sym_comment];
   ACTIONS 417 [sym_ppFragmentExpr]; ACTIONS 397 [sym_ppFragmentStmt];
   ACTIONS 403 [sym__literalStringMultiline]; ACTIONS 421 [sym_identifier];
   ACTIONS 423 [sym_kSpecialize]; ACTIONS 425 [sym_kOn]; ACTIONS 427 [sym_kAsm];
   ACTIONS 429 [sym_kBegin]; ACTIONS 431 [sym_kCase]; ACTIONS 433 [sym_kConst];
   ACTIONS 579 [sym_kEnd]; ACTIONS 437 [sym_kFor]; ACTIONS 439 [sym_kFunction];
   ACTIONS 441 [sym_kGoto]; ACTIONS 443 [sym_kIf]; ACTIONS 445 [sym_kInherited];
   ACTIONS 417 [sym_kNil]; ACTIONS 415 [sym_kNot]; ACTIONS 439 [sym_kProcedure];
   ACTIONS 447 [sym_kRaise]; ACTIONS 449 [sym_kRepeat]; ACTIONS 451 [sym_kString];
   ACTIONS 453 [sym_kTry]; ACTIONS 455 [sym_kVar]; ACTIONS 457 [sym_kWhile];
   ACTIONS 459 [sym_kWith]].

(** State 120. *)
Definition ts_parse_table_120 : parse_row :=
  [STATE 6213 [sym_if]; STATE 6327 [sym_ifElse; sym_while; sym_repeat; sym_for; sym_foreach];
   STATE 12104 [sym_exceptionHandler]; STATE 6327 [sym_try; sym_case; sym_block; sym_asm;
   sym_with; sym_raise; sym_statement; sym_goto; sym__statement]; STATE 15991 [sym_ifTr;
   sym_ifElseTr; sym_whileTr; sym_repeatTr; sym_forTr; sym_foreachTr];
   STATE 12526 [sym_exceptionHandlerTr]; STATE 14175 [sym__exceptionHandlersTr];
   STATE 15991 [sym_tryTr; sym_caseTr]; STATE 14251 [sym_blockTr]; STATE 15991 [sym_asmTr;
   sym_withTr; sym_raiseTr; sym_statementTr; sym_gotoTr; sym__statementTr];
   STATE 13915 [sym_assignment]; STATE 11785 [sym_varAssignDef]; STATE 13915 [sym_varDef;
   sym_constDef]; STATE 6166 [sym_label]; STATE 15991 [sym__statementsTr];
   STATE 14175 [sym_statementsTr]; STATE 8019 [sym__expr; sym_exprConditional];
   STATE 7478 [sym__ref; sym_lambda; sym_inherited; sym_exprDot; sym_exprDeref; sym_exprAs;
   sym_exprTpl; sym_exprSubscript; sym_exprCall]; STATE 8019 [sym_exprBinary; sym_exprUnary];
   STATE 7478 [sym_exprParens; sym_exprBrackets; sym__literal; sym_literalString];
   STATE 6664 [sym__literalString; sym_literalChar]; STATE 7478 [sym_literalNumber];
   STATE 7742 [sym__literalInt; sym__literalFloat]; STATE 1380 [sym__ppIf];
   STATE 6327 [sym__ppStatementBlock]; STATE 11840 [aux_sym_labeledStatement_repeat1];
   STATE 12159 [aux_sym__exceptionHandlersTr_repeat1]; STATE 863 [aux_sym__statementsTr_repeat1];
   STATE 6664 [aux_sym_literalString_repeat1]; ACTIONS 397 [anon_sym_SEMI];
   ACTIONS 399 [anon_sym_LBRACK]; ACTIONS 401 [anon_sym_LPAREN];
   ACTIONS 403 [aux_sym__literalString_token1]; ACTIONS 405 [anon_sym_POUND];
   ACTIONS 407 [aux_sym__literalInt_token1]; ACTIONS 409 [aux_sym__literalInt_token2;
   aux_sym__literalInt_token3]; ACTIONS 407 [aux_sym__literalFloat_token1];
   ACTIONS 411 [aux_sym_ppUsesBlock_token1]; ACTIONS 413 [sym_kAdd; sym_kSub];
   ACTIONS 415 [sym_kAt]; ACTIONS 417 [sym_kTrue; sym_kFalse]; ACTIONS 419 [sym_labelNumber];
   ACTIONS 3 [sym__space]; ACTIONS 5 [sym_ppDirective]; ACTIONS 3 [sym_comment];
   ACTIONS 417 [sym_ppFragmentExpr]; ACTIONS 397 [sym_ppFragmentStmt];
   ACTIONS 403 [sym__literalStringMultiline]; ACTIONS 421 [sym_identifier];
   ACTIONS 423 [sym_kSpecialize]; ACTIONS 425 [sym_kOn]; ACTIONS 427 [sym_kAsm];
   ACTIONS 429 [sym_kBegin]; ACTIONS 431 [sym_kCase]; ACTIONS 433 [sym_kConst];
   ACTIONS 581 [sym_kEnd]; ACTIONS 437 [sym_kFor]; ACTIONS 439 [sym_kFunction];
   ACTIONS 441 [sym_kGoto]; ACTIONS 443 [sym_kIf]; ACTIONS 445 [sym_kInherited];
   ACTIONS 417 [sym_kNil]; ACTIONS 415 [sym_kNot]; ACTIONS 439 [sym_kProcedure];
   ACTIONS 447 [sym_kRaise]; ACTIONS 449 [sym_kRepeat]; ACTIONS 451 [sym_kString];
   ACTIONS 453 [sym_kTry]; ACTIONS 455 [sym_kVar]; ACTIONS 457 [sym_kWhile];
   ACTIONS 459 [sym_kWith]].

(** State 121. *)
Definition ts_parse_table_121 : parse_row :=
  [STATE 6213 [sym_if]; STATE 6327 [sym_ifElse; sym_while; sym_repeat; sym_for; sym_foreach];
   STATE 12104 [sym_exceptionHandler]; STATE 6327 [sym_try; sym_case; sym_block; sym_asm;
   sym_with; sym_raise; sym_statement; sym_goto; sym__statement]; STATE 15991 [sym_ifTr;
   sym_ifElseTr; sym_whileTr; sym_repeatTr; sym_forTr; sym_foreachTr];
   STATE 12526 [sym_exceptionHandlerTr]; STATE 14210 [sym__exceptionHandlersTr];
   STATE 15991 [sym_tryTr; sym_caseTr]; STATE 14251 [sym_blockTr]; STATE 15991 [sym_asmTr;
   sym_withTr; sym_raiseTr; sym_statementTr; sym_gotoTr; sym__statementTr];
   STATE 13915 [sym_assignment]; STATE 11785 [sym_varAssignDef]; STATE 13915 [sym_varDef;
   sym_constDef]; STATE 6166 [sym_label]; STATE 15991 [sym__statementsTr];
   STATE 14210 [sym_statementsTr]; STATE 8019 [sym__expr; sym_exprConditional];
   STATE 7478 [sym__ref; sym_lambda; sym_inherited; sym_exprDot; sym_exprDeref; sym_exprAs;
   sym_exprTpl; sym_exprSubscript; sym_exprCall]; STATE 8019 [sym_exprBinary; sym_exprUnary];
   STATE 7478 [sym_exprParens; sym_exprBrackets; sym__literal; sym_literalString];
   STATE 6664 [sym__literalString; sym_literalChar]; STATE 7478 [sym_literalNumber];
   STATE 7742 [sym__literalInt; sym__literalFloat]; STATE 1380 [sym__ppIf];
   STATE 6327 [sym__ppStatementBlock]; STATE 11840 [aux_sym_labeledStatement_repeat1];
   STATE 12159 [aux_sym__exceptionHandlersTr_repeat1]; STATE 863 [aux_sym__statementsTr_repeat1];
   STATE 6664 [aux_sym_literalString_repeat1]; ACTIONS 397 [anon_sym_SEMI];
   ACTIONS 399 [anon_sym_LBRACK]; ACTIONS 401 [anon_sym_LPAREN];
   ACTIONS 403 [aux_sym__literalString_token1]; ACTIONS 405 [anon_sym_POUND];
   ACTIONS 407 [aux_sym__literalInt_token1]; ACTIONS 409 [aux_sym__literalInt_token2;
   aux_sym__literalInt_token3]; ACTIONS 407 [aux_sym__literalFloat_token1];
   ACTIONS 411 [aux_sym_ppUsesBlock_token1]; ACTIONS 413 [sym_kAdd; sym_kSub];
   ACTIONS 415 [sym_kAt]; ACTIONS 417 [sym_kTrue; sym_kFalse]; ACTIONS 419 [sym_labelNumber];
   ACTIONS 3 [sym__space]; ACTIONS 5 [sym_ppDirective]; ACTIONS 3 [sym_comment];
   ACTIONS 417 [sym_ppFragmentExpr]; ACTIONS 397 [sym_ppFragmentStmt];
   ACTIONS 403 [sym__literalStringMultiline]; ACTIONS 421 [sym_identifier];
   ACTIONS 423 [sym_kSpecialize]; ACTIONS 425 [sym_kOn]; ACTIONS 427 [sym_kAsm];
   ACTIONS 429 [sym_kBegin]; ACTIONS 431 [sym_kCase]; ACTIONS 433 [sym_kConst];
   ACTIONS 583 [sym_kEnd]; ACTIONS 437 [sym_kFor]; ACTIONS 439 [sym_kFunction];
   ACTIONS 441 [sym_kGoto]; ACTIONS 443 [sym_kIf]; ACTIONS 445 [sym_kInherited];
   ACTIONS 417 [sym_kNil]; ACTIONS 415 [sym_kNot]; ACTIONS 439 [sym_kProcedure];
   ACTIONS 447 [sym_kRaise]; ACTIONS 449 [sym_kRepeat]; ACTIONS 451 [sym_kString];
   ACTIONS 453 [sym_kTry]; ACTIONS 455 [sym_kVar]; ACTIONS 457 [sym_kWhile];
   ACTIONS 459 [sym_kWith]].

(** State 122. *)
Definition ts_parse_table_122 : parse_row :=
  [STATE 6213 [sym_if]; STATE 6327 [sym_ifElse; sym_while; sym_repeat; sym_for; sym_foreach];
   STATE 12104 [sym_exceptionHandler]; STATE 6327 [sym_try; sym_case; sym_block; sym_asm;
   sym_with; sym_raise; sym_statement; sym_goto; sym__statement]; STATE 15991 [sym_ifTr;
   sym_ifElseTr; sym_whileTr; sym_repeatTr; sym_forTr; sym_foreachTr];
   STATE 12526 [sym_exceptionHandlerTr]; STATE 14278 [sym__exceptionHandlersTr];
   STATE 15991 [sym_tryTr; sym_caseTr]; STATE 14251 [sym_blockTr]; STATE 15991 [sym_asmTr;
   sym_withTr; sym_raiseTr; sym_statementTr; sym_gotoTr; sym__statementTr];
   STATE 13915 [sym_assignment]; STATE 11785 [sym_varAssignDef]; STATE 13915 [sym_varDef;
   sym_constDef]; STATE 6166 [sym_label]; STATE 15991 [sym__statementsTr];
   STATE 14278 [sym_statementsTr]; STATE 8019 [sym__expr; sym_exprConditional];
   STATE 7478 [sym__ref; sym_lambda; sym_inherited; sym_exprDot; sym_exprDeref; sym_exprAs;
   sym_exprTpl; sym_exprSubscript; sym_exprCall]; STATE 8019 [sym_exprBinary; sym_exprUnary];
   STATE 7478 [sym_exprParens; sym_exprBrackets; sym__literal; sym_literalString];
   STATE 6664 [sym__literalString; sym_literalChar]; STATE 7478 [sym_literalNumber];
   STATE 7742 [sym__literalInt; sym__literalFloat]; STATE 1380 [sym__ppIf];
   STATE 6327 [sym__ppStatementBlock]; STATE 11840 [aux_sym_labeledStatement_repeat1];
   STATE 12159 [aux_sym__exceptionHandlersTr_repeat1]; STATE 863 [aux_sym__statementsTr_repeat1];
   STATE 6664 [aux_sym_literalString_repeat1]; ACTIONS 397 [anon_sym_SEMI];
   ACTIONS 399 [anon_sym_LBRACK]; ACTIONS 401 [anon_sym_LPAREN];
   ACTIONS 403 [aux_sym__literalString_token1]; ACTIONS 405 [anon_sym_POUND];
   ACTIONS 407 [aux_sym__literalInt_token1]; ACTIONS 409 [aux_sym__literalInt_token2;
   aux_sym__literalInt_token3]; ACTIONS 407 [aux_sym__literalFloat_token1];
   ACTIONS 411 [aux_sym_ppUsesBlock_token1]; ACTIONS 413 [sym_kAdd; sym_kSub];
   ACTIONS 415 [sym_kAt]; ACTIONS 417 [sym_kTrue; sym_kFalse]; ACTIONS 419 [sym_labelNumber];
   ACTIONS 3 [sym__space]; ACTIONS 5 [sym_ppDirective]; ACTIONS 3 [sym_comment];
   ACTIONS 417 [sym_ppFragmentExpr]; ACTIONS 397 [sym_ppFragmentStmt];
   ACTIONS 403 [sym__literalStringMultiline]; ACTIONS 421 [sym_identifier];
   ACTIONS 423 [sym_kSpecialize]; ACTIONS 425 [sym_kOn]; ACTIONS 427 [sym_kAsm];
   ACTIONS 429 [sym_kBegin]; ACTIONS 431 [sym_kCase]; ACTIONS 433 [sym_kConst];
   ACTIONS 585 [sym_kEnd]; ACTIONS 437 [sym_kFor]; ACTIONS 439 [sym_kFunction];
   ACTIONS 441 [sym_kGoto]; ACTIONS 443 [sym_kIf]; ACTIONS 445 [sym_kInherited];
   ACTIONS 417 [sym_kNil]; ACTIONS 415 [sym_kNot]; ACTIONS 439 [sym_kProcedure];
   ACTIONS 447 [sym_kRaise]; ACTIONS 449 [sym_kRepeat]; ACTIONS 451 [sym_kString];
   ACTIONS 453 [sym_kTry]; ACTIONS 455 [sym_kVar]; ACTIONS 457 [sym_kWhile];
   ACTIONS 459 [sym_kWith]].

(** State 123. *)
Definition ts_parse_table_123 : parse_row :=
  [STATE 6213 [sym_if]; STATE 6327 [sym_ifElse; sym_while; sym_repeat; sym_for; sym_foreach];
   STATE 12104 [sym_exceptionHandler]; STATE 6327 [sym_try; sym_case; sym_block; sym_asm;
   sym_with; sym_raise; sym_statement; sym_goto; sym__statement]; STATE 15991 [sym_ifTr;
   sym_ifElseTr; sym_whileTr; sym_repeatTr; sym_forTr; sym_foreachTr];
   STATE 12526 [sym_exceptionHandlerTr]; STATE 14318 [sym__exceptionHandlersTr];
   STATE 15991 [sym_tryTr; sym_caseTr]; STATE 14251 [sym_blockTr]; STATE 15991 [sym_asmTr;
   sym_withTr; sym_raiseTr; sym_statementTr; sym_gotoTr; sym__statementTr];
   STATE 13915 [sym_assignment]; STATE 11785 [sym_varAssignDef]; STATE 13915 [sym_varDef;
   sym_constDef]; STATE 6166 [sym_label]; STATE 15991 [sym__statementsTr];
   STATE 14318 [sym_statementsTr]; STATE 8019 [sym__expr; sym_exprConditional];
   STATE 7478 [sym__ref; sym_lambda; sym_inherited; sym_exprDot; sym_exprDeref; sym_exprAs;
   sym_exprTpl; sym_exprSubscript; sym_exprCall]; STATE 8019 [sym_exprBinary; sym_exprUnary];
   STATE 7478 [sym_exprParens; sym_exprBrackets; sym__literal; sym_literalString];
   STATE 6664 [sym__literalString; sym_literalChar]; STATE 7478 [sym_literalNumber];
   STATE 7742 [sym__literalInt; sym__literalFloat]; STATE 1380 [sym__ppIf];
   STATE 6327 [sym__ppStatementBlock]; STATE 11840 [aux_sym_labeledStatement_repeat1];
   STATE 12159 [aux_sym__exceptionHandlersTr_repeat1]; STATE 863 [aux_sym__statementsTr_repeat1];
   STATE 6664 [aux_sym_literalString_repeat1]; ACTIONS 397 [anon_sym_SEMI];
   ACTIONS 399 [anon_sym_LBRACK]; ACTIONS 401 [anon_sym_LPAREN];
   ACTIONS 403 [aux_sym__literalString_token1]; ACTIONS 405 [anon_sym_POUND];
   ACTIONS 407 [aux_sym__literalInt_token1]; ACTIONS 409 [aux_sym__literalInt_token2;
   aux_sym__literalInt_token3]; ACTIONS 407 [aux_sym__literalFloat_token1];
   ACTIONS 411 [aux_sym_ppUsesBlock_token1]; ACTIONS 413 [sym_kAdd; sym_kSub];
   ACTIONS 415 [sym_kAt]; ACTIONS 417 [sym_kTrue; sym_kFalse]; ACTIONS 419 [sym_labelNumber];
   ACTIONS 3 [sym__space]; ACTIONS 5 [sym_ppDirective]; ACTIONS 3 [sym_comment];
   ACTIONS 417 [sym_ppFragmentExpr]; ACTIONS 397 [sym_ppFragmentStmt];
   ACTIONS 403 [sym__literalStringMultiline]; ACTIONS 421 [sym_identifier];
   ACTIONS 423 [sym_kSpecialize]; ACTIONS 425 [sym_kOn]; ACTIONS 427 [sym_kAsm];
   ACTIONS 429 [sym_kBegin]; ACTIONS 431 [sym_kCase]; ACTIONS 433 [sym_kConst];
   ACTIONS 587 [sym_kEnd]; ACTIONS 437 [sym_kFor]; ACTIONS 439 [sym_kFunction];
   ACTIONS 441 [sym_kGoto]; ACTIONS 443 [sym_kIf]; ACTIONS 445 [sym_kInherited];
   ACTIONS 417 [sym_kNil]; ACTIONS 415 [sym_kNot]; ACTIONS 439 [sym_kProcedure];
   ACTIONS 447 [sym_kRaise]; ACTIONS 449 [sym_kRepeat]; ACTIONS 451 [sym_kString];
   ACTIONS 453 [sym_kTry]; ACTIONS 455 [sym_kVar]; ACTIONS 457 [sym_kWhile];
   ACTIONS 459 [sym_kWith]].

(** State 124. *)
Definition ts_parse_table_124 : parse_row :=
  [STATE 6213 [sym_if]; STATE 6327 [sym_ifElse; sym_while; sym_repeat; sym_for; sym_foreach];
   STATE 12104 [sym_exceptionHandler]; STATE 6327 [sym_try; sym_case; sym_block; sym_asm;
   sym_with; sym_raise; sym_statement; sym_goto; sym__statement]; STATE 15991 [sym_ifTr;
   sym_ifElseTr; sym_whileTr; sym_repeatTr; sym_forTr; sym_foreachTr];
   STATE 12526 [sym_exceptionHandlerTr]; STATE 14349 [sym__exceptionHandlersTr];
   STATE 15991 [sym_tryTr; sym_caseTr]; STATE 14251 [sym_blockTr]; STATE 15991 [sym_asmTr;
   sym_withTr; sym_raiseTr; sym_statementTr; sym_gotoTr; sym__statementTr];
   STATE 13915 [sym_assignment]; STATE 11785 [sym_varAssignDef]; STATE 13915 [sym_varDef;
   sym_constDef]; STATE 6166 [sym_label]; STATE 15991 [sym__statementsTr];
   STATE 14349 [sym_statementsTr]; STATE 8019 [sym__expr; sym_exprConditional];
   STATE 7478 [sym__ref; sym_lambda; sym_inherited; sym_exprDot; sym_exprDeref; sym_exprAs;
   sym_exprTpl; sym_exprSubscript; sym_exprCall]; STATE 8019 [sym_exprBinary; sym_exprUnary];
   STATE 7478 [sym_exprParens; sym_exprBrackets; sym__literal; sym_literalString];
   STATE 6664 [sym__literalString; sym_literalChar]; STATE 7478 [sym_literalNumber];
   STATE 7742 [sym__literalInt; sym__literalFloat]; STATE 1380 [sym__ppIf];
   STATE 6327 [sym__ppStatementBlock]; STATE 11840 [aux_sym_labeledStatement_repeat1];
   STATE 12159 [aux_sym__exceptionHandlersTr_repeat1]; STATE 863 [aux_sym__statementsTr_repeat1];
   STATE 6664 [aux_sym_literalString_repeat1]; ACTIONS 397 [anon_sym_SEMI];
   ACTIONS 399 [anon_sym_LBRACK]; ACTIONS 401 [anon_sym_LPAREN];
   ACTIONS 403 [aux_sym__literalString_token1]; ACTIONS 405 [anon_sym_POUND];
   ACTIONS 407 [aux_sym__literalInt_token1]; ACTIONS 409 [aux_sym__literalInt_token2;
   aux_sym__literalInt_token3]; ACTIONS 407 [aux_sym__literalFloat_token1];
   ACTIONS 411 [aux_sym_ppUsesBlock_token1]; ACTIONS 413 [sym_kAdd; sym_kSub];
   ACTIONS 415 [sym_kAt]; ACTIONS 417 [sym_kTrue; sym_kFalse]; ACTIONS 419 [sym_labelNumber];
   ACTIONS 3 [sym__space]; ACTIONS 5 [sym_ppDirective]; ACTIONS 3 [sym_comment];
   ACTIONS 417 [sym_ppFragmentExpr]; ACTIONS 397 [sym_ppFragmentStmt];
   ACTIONS 403 [sym__literalStringMultiline]; ACTIONS 421 [sym_identifier];
   ACTIONS 423 [sym_kSpecialize]; ACTIONS 425 [sym_kOn]; ACTIONS 427 [sym_kAsm];
   ACTIONS 429 [sym_kBegin]; ACTIONS 431 [sym_kCase]; ACTIONS 433 [sym_kConst];
   ACTIONS 589 [sym_kEnd]; ACTIONS 437 [sym_kFor]; ACTIONS 439 [sym_kFunction];
   ACTIONS 441 [sym_kGoto]; ACTIONS 443 [sym_kIf]; ACTIONS 445 [sym_kInherited];
   ACTIONS 417 [sym_kNil]; ACTIONS 415 [sym_kNot]; ACTIONS 439 [sym_kProcedure];
   ACTIONS 447 [sym_kRaise]; ACTIONS 449 [sym_kRepeat]; ACTIONS 451 [sym_kString];
   ACTIONS 453 [sym_kTry]; ACTIONS 455 [sym_kVar]; ACTIONS 457 [sym_kWhile];
   ACTIONS 459 [sym_kWith]].

(** State 125. *)
Definition ts_parse_table_125 : parse_row :=
  [STATE 6213 [sym_if]; STATE 6327 [sym_ifElse; sym_while; sym_repeat; sym_for; sym_foreach];
   STATE 12104 [sym_exceptionHandler]; STATE 6327 [sym_try; sym_case; sym_block; sym_asm;
   sym_with; sym_raise; sym_statement; sym_goto; sym__statement]; STATE 15991 [sym_ifTr;
   sym_ifElseTr; sym_whileTr; sym_repeatTr; sym_forTr; sym_foreachTr];
   STATE 12526 [sym_exceptionHandlerTr]; STATE 14443 [sym__exceptionHandlersTr];
   STATE 15991 [sym_tryTr; sym_caseTr]; STATE 14251 [sym_blockTr]; STATE 15991 [sym_asmTr;
   sym_withTr; sym_raiseTr; sym_statementTr; sym_gotoTr; sym__statementTr];
   STATE 13915 [sym_assignment]; STATE 11785 [sym_varAssignDef]; STATE 13915 [sym_varDef;
   sym_constDef]; STATE 6166 [sym_label]; STATE 15991 [sym__statementsTr];
   STATE 14443 [sym_statementsTr]; STATE 8019 [sym__expr; sym_exprConditional];
   STATE 7478 [sym__ref; sym_lambda; sym_inherited; sym_exprDot; sym_exprDeref; sym_exprAs;
   sym_exprTpl; sym_exprSubscript; sym_exprCall]; STATE 8019 [sym_exprBinary; sym_exprUnary];
   STATE 7478 [sym_exprParens; sym_exprBrackets; sym__literal; sym_literalString];
   STATE 6664 [sym__literalString; sym_literalChar]; STATE 7478 [sym_literalNumber];
   STATE 7742 [sym__literalInt; sym__literalFloat]; STATE 1380 [sym__ppIf];
   STATE 6327 [sym__ppStatementBlock]; STATE 11840 [aux_sym_labeledStatement_repeat1];
   STATE 12159 [aux_sym__exceptionHandlersTr_repeat1]; STATE 863 [aux_sym__statementsTr_repeat1];
   STATE 6664 [aux_sym_literalString_repeat1]; ACTIONS 397 [anon_sym_SEMI];
   ACTIONS 399 [anon_sym_LBRACK]; ACTIONS 401 [anon_sym_LPAREN];
   ACTIONS 403 [aux_sym__literalString_token1]; ACTIONS 405 [anon_sym_POUND];
   ACTIONS 407 [aux_sym__literalInt_token1]; ACTIONS 409 [aux_sym__literalInt_token2;
   aux_sym__literalInt_token3]; ACTIONS 407 [aux_sym__literalFloat_token1];
   ACTIONS 411 [aux_sym_ppUsesBlock_token1]; ACTIONS 413 [sym_kAdd; sym_kSub];
   ACTIONS 415 [sym_kAt]; ACTIONS 417 [sym_kTrue; sym_kFalse]; ACTIONS 419 [sym_labelNumber];
   ACTIONS 3 [sym__space]; ACTIONS 5 [sym_ppDirective]; ACTIONS 3 [sym_comment];
   ACTIONS 417 [sym_ppFragmentExpr]; ACTIONS 397 [sym_ppFragmentStmt];
   ACTIONS 403 [sym__literalStringMultiline]; ACTIONS 421 [sym_identifier];
   ACTIONS 423 [sym_kSpecialize]; ACTIONS 425 [sym_kOn]; ACTIONS 427 [sym_kAsm];
   ACTIONS 429 [sym_kBegin]; ACTIONS 431 [sym_kCase]; ACTIONS 433 [sym_kConst];
   ACTIONS 591 [sym_kEnd]; ACTIONS 437 [sym_kFor]; ACTIONS 439 [sym_kFunction];
   ACTIONS 441 [sym_kGoto]; ACTIONS 443 [sym_kIf]; ACTIONS 445 [sym_kInherited];
   ACTIONS 417 [sym_kNil]; ACTIONS 415 [sym_kNot]; ACTIONS 439 [sym_kProcedure];
   ACTIONS 447 [sym_kRaise]; ACTIONS 449 [sym_kRepeat]; ACTIONS 451 [sym_kString];
   ACTIONS 453 [sym_kTry]; ACTIONS 455 [sym_kVar]; ACTIONS 457 [sym_kWhile];
   ACTIONS 459 [sym_kWith]].

(** State 126. *)
Definition ts_parse_table_126 : parse_row :=
  [STATE 6213 [sym_if]; STATE 6327 [sym_ifElse; sym_while; sym_repeat; sym_for; sym_foreach];
   STATE 12104 [sym_exceptionHandler]; STATE 6327 [sym_try; sym_case; sym_block; sym_asm;
   sym_with; sym_raise; sym_statement; sym_goto; sym__statement]; STATE 15991 [sym_ifTr;
   sym_ifElseTr; sym_whileTr; sym_repeatTr; sym_forTr; sym_foreachTr];
   STATE 12526 [sym_exceptionHandlerTr]; STATE 14471 [sym__exceptionHandlersTr];
   STATE 15991 [sym_tryTr; sym_caseTr]; STATE 14251 [sym_blockTr]; STATE 15991 [sym_asmTr;
   sym_withTr; sym_raiseTr; sym_statementTr; sym_gotoTr; sym__statementTr];
   STATE 13915 [sym_assignment]; STATE 11785 [sym_varAssignDef]; STATE 13915 [sym_varDef;
   sym_constDef]; STATE 6166 [sym_label]; STATE 15991 [sym__statementsTr];
   STATE 14471 [sym_statementsTr]; STATE 8019 [sym__expr; sym_exprConditional];
   STATE 7478 [sym__ref; sym_lambda; sym_inherited; sym_exprDot; sym_exprDeref; sym_exprAs;
   sym_exprTpl; sym_exprSubscript; sym_exprCall]; STATE 8019 [sym_exprBinary; sym_exprUnary];
   STATE 7478 [sym_exprParens; sym_exprBrackets; sym__literal; sym_literalString];
   STATE 6664 [sym__literalString; sym_literalChar]; STATE 7478 [sym_literalNumber];
   STATE 7742 [sym__literalInt; sym__literalFloat]; STATE 1380 [sym__ppIf];
   STATE 6327 [sym__ppStatementBlock]; STATE 11840 [aux_sym_labeledStatement_repeat1];
   STATE 12159 [aux_sym__exceptionHandlersTr_repeat1]; STATE 863 [aux_sym__statementsTr_repeat1];
   STATE 6664 [aux_sym_literalString_repeat1]; ACTIONS 397 [anon_sym_SEMI];
   ACTIONS 399 [anon_sym_LBRACK]; ACTIONS 401 [anon_sym_LPAREN];
   ACTIONS 403 [aux_sym__literalString_token1]; ACTIONS 405 [anon_sym_POUND];
   ACTIONS 407 [aux_sym__literalInt_token1]; ACTIONS 409 [aux_sym__literalInt_token2;
   aux_sym__literalInt_token3]; ACTIONS 407 [aux_sym__literalFloat_token1];
   ACTIONS 411 [aux_sym_ppUsesBlock_token1]; ACTIONS 413 [sym_kAdd; sym_kSub];
   ACTIONS 415 [sym_kAt]; ACTIONS 417 [sym_kTrue; sym_kFalse]; ACTIONS 419 [sym_labelNumber];
   ACTIONS 3 [sym__space]; ACTIONS 5 [sym_ppDirective]; ACTIONS 3 [sym_comment];
   ACTIONS 417 [sym_ppFragmentExpr]; ACTIONS 397 [sym_ppFragmentStmt];
   ACTIONS 403 [sym__literalStringMultiline]; ACTIONS 421 [sym_identifier];
   ACTIONS 423 [sym_kSpecialize]; ACTIONS 425 [sym_kOn]; ACTIONS 427 [sym_kAsm];
   ACTIONS 429 [sym_kBegin]; ACTIONS 431 [sym_kCase]; ACTIONS 433 [sym_kConst];
   ACTIONS 593 [sym_kEnd]; ACTIONS 437 [sym_kFor]; ACTIONS 439 [sym_kFunction];
   ACTIONS 441 [sym_kGoto]; ACTIONS 443 [sym_kIf]; ACTIONS 445 [sym_kInherited];
   ACTIONS 417 [sym_kNil]; ACTIONS 415 [sym_kNot]; ACTIONS 439 [sym_kProcedure];
   ACTIONS 447 [sym_kRaise]; ACTIONS 449 [sym_kRepeat]; ACTIONS 451 [sym_kString];
   ACTIONS 453 [sym_kTry]; ACTIONS 455 [sym_kVar]; ACTIONS 457 [sym_kWhile];
   ACTIONS 459 [sym_kWith]].

(** State 127. *)
Definition ts_parse_table_127 : parse_row :=
  [STATE 6213 [sym_if]; STATE 6327 [sym_ifElse; sym_while; sym_repeat; sym_for; sym_foreach];
   STATE 12104 [sym_exceptionHandler]; STATE 6327 [sym_try; sym_case; sym_block; sym_asm;
   sym_with; sym_raise; sym_statement; sym_goto; sym__statement]; STATE 15991 [sym_ifTr;
   sym_ifElseTr; sym_whileTr; sym_repeatTr; sym_forTr; sym_foreachTr];
   STATE 12526 [sym_exceptionHandlerTr]; STATE 14559 [sym__exceptionHandlersTr];
   STATE 15991 [sym_tryTr; sym_caseTr]; STATE 14251 [sym_blockTr]; STATE 15991 [sym_asmTr;
   sym_withTr; sym_raiseTr; sym_statementTr; sym_gotoTr; sym__statementTr];
   STATE 13915 [sym_assignment]; STATE 11785 [sym_varAssignDef]; STATE 13915 [sym_varDef;
   sym_constDef]; STATE 6166 [sym_label]; STATE 15991 [sym__statementsTr];
   STATE 14559 [sym_statementsTr]; STATE 8019 [sym__expr; sym_exprConditional];
   STATE 7478 [sym__ref; sym_lambda; sym_inherited; sym_exprDot; sym_exprDeref; sym_exprAs;
   sym_exprTpl; sym_exprSubscript; sym_exprCall]; STATE 8019 [sym_exprBinary; sym_exprUnary];
   STATE 7478 [sym_exprParens; sym_exprBrackets; sym__literal; sym_literalString];
   STATE 6664 [sym__literalString; sym_literalChar]; STATE 7478 [sym_literalNumber];
   STATE 7742 [sym__literalInt; sym__literalFloat]; STATE 1380 [sym__ppIf];
   STATE 6327 [sym__ppStatementBlock]; STATE 11840 [aux_sym_labeledStatement_repeat1];
   STATE 12159 [aux_sym__exceptionHandlersTr_repeat1]; STATE 863 [aux_sym__statementsTr_repeat1];
   STATE 6664 [aux_sym_literalString_repeat1]; ACTIONS 397 [anon_sym_SEMI];
   ACTIONS 399 [anon_sym_LBRACK]; ACTIONS 401 [anon_sym_LPAREN];
   ACTIONS 403 [aux_sym__literalString_token1]; ACTIONS 405 [anon_sym_POUND];
   ACTIONS 407 [aux_sym__literalInt_token1]; ACTIONS 409 [aux_sym__literalInt_token2;
   aux_sym__literalInt_token3]; ACTIONS 407 [aux_sym__literalFloat_token1];
   ACTIONS 411 [aux_sym_ppUsesBlock_token1]; ACTIONS 413 [sym_kAdd; sym_kSub];
   ACTIONS 415 [sym_kAt]; ACTIONS 417 [sym_kTrue; sym_kFalse]; ACTIONS 419 [sym_labelNumber];
   ACTIONS 3 [sym__space]; ACTIONS 5 [sym_ppDirective]; ACTIONS 3 [sym_comment];
   ACTIONS 417 [sym_ppFragmentExpr]; ACTIONS 397 [sym_ppFragmentStmt];
   ACTIONS 403 [sym__literalStringMultiline]; ACTIONS 421 [sym_identifier];
   ACTIONS 423 [sym_kSpecialize]; ACTIONS 425 [sym_kOn]; ACTIONS 427 [sym_kAsm];
   ACTIONS 429 [sym_kBegin]; ACTIONS 431 [sym_kCase]; ACTIONS 433 [sym_kConst];
   ACTIONS 595 [sym_kEnd]; ACTIONS 437 [sym_kFor]; ACTIONS 439 [sym_kFunction];
   ACTIONS 441 [sym_kGoto]; ACTIONS 443 [sym_kIf]; ACTIONS 445 [sym_kInherited];
   ACTIONS 417 [sym_kNil]; ACTIONS 415 [sym_kNot]; ACTIONS 439 [sym_kProcedure];
   ACTIONS 447 [sym_kRaise]; ACTIONS 449 [sym_kRepeat]; ACTIONS 451 [sym_kString];
   ACTIONS 453 [sym_kTry]; ACTIONS 455 [sym_kVar]; ACTIONS 457 [sym_kWhile];
   ACTIONS 459 [sym_kWith]].

(** State 128. *)
Definition ts_parse_table_128 : parse_row :=
  [STATE 6213 [sym_if]; STATE 6327 [sym_ifElse; sym_while; sym_repeat; sym_for; sym_foreach];
   STATE 12104 [sym_exceptionHandler]; STATE 6327 [sym_try; sym_case; sym_block; sym_asm;
   sym_with; sym_raise; sym_statement; sym_goto; sym__statement]; STATE 15991 [sym_ifTr;
   sym_ifElseTr; sym_whileTr; sym_repeatTr; sym_forTr; sym_foreachTr];
   STATE 12526 [sym_exceptionHandlerTr]; STATE 14587 [sym__exceptionHandlersTr];
   STATE 15991 [sym_tryTr; sym_caseTr]; STATE 14251 [sym_blockTr]; STATE 15991 [sym_asmTr;
   sym_withTr; sym_raiseTr; sym_statementTr; sym_gotoTr; sym__statementTr];
   STATE 13915 [sym_assignment]; STATE 11785 [sym_varAssignDef]; STATE 13915 [sym_varDef;
   sym_constDef]; STATE 6166 [sym_label]; STATE 15991 [sym__statementsTr];
   STATE 14587 [sym_statementsTr]; STATE 8019 [sym__expr; sym_exprConditional];
   STATE 7478 [sym__ref; sym_lambda; sym_inherited; sym_exprDot; sym_exprDeref; sym_exprAs;
   sym_exprTpl; sym_exprSubscript; sym_exprCall]; STATE 8019 [sym_exprBinary; sym_exprUnary];
   STATE 7478 [sym_exprParens; sym_exprBrackets; sym__literal; sym_literalString];
   STATE 6664 [sym__literalString; sym_literalChar]; STATE 7478 [sym_literalNumber];
   STATE 7742 [sym__literalInt; sym__literalFloat]; STATE 1380 [sym__ppIf];
   STATE 6327 [sym__ppStatementBlock]; STATE 11840 [aux_sym_labeledStatement_repeat1];
   STATE 12159 [aux_sym__exceptionHandlersTr_repeat1]; STATE 863 [aux_sym__statementsTr_repeat1];
   STATE 6664 [aux_sym_literalString_repeat1]; ACTIONS 397 [anon_sym_SEMI];
   ACTIONS 399 [anon_sym_LBRACK]; ACTIONS 401 [anon_sym_LPAREN];
   ACTIONS 403 [aux_sym__literalString_token1]; ACTIONS 405 [anon_sym_POUND];
   ACTIONS 407 [aux_sym__literalInt_token1]; ACTIONS 409 [aux_sym__literalInt_token2;
   aux_sym__literalInt_token3]; ACTIONS 407 [aux_sym__literalFloat_token1];
   ACTIONS 411 [aux_sym_ppUsesBlock_token1]; ACTIONS 413 [sym_kAdd; sym_kSub];
   ACTIONS 415 [sym_kAt]; ACTIONS 417 [sym_kTrue; sym_kFalse]; ACTIONS 419 [sym_labelNumber];
   ACTIONS 3 [sym__space]; ACTIONS 5 [sym_ppDirective]; ACTIONS 3 [sym_comment];
   ACTIONS 417 [sym_ppFragmentExpr]; ACTIONS 397 [sym_ppFragmentStmt];
   ACTIONS 403 [sym__literalStringMultiline]; ACTIONS 421 [sym_identifier];
   ACTIONS 423 [sym_kSpecialize]; ACTIONS 425 [sym_kOn]; ACTIONS 427 [sym_kAsm];
   ACTIONS 429 [sym_kBegin]; ACTIONS 431 [sym_kCase]; ACTIONS 433 [sym_kConst];
   ACTIONS 597 [sym_kEnd]; ACTIONS 437 [sym_kFor]; ACTIONS 439 [sym_kFunction];
   ACTIONS 441 [sym_kGoto]; ACTIONS 443 [sym_kIf]; ACTIONS 445 [sym_kInherited];
   ACTIONS 417 [sym_kNil]; ACTIONS 415 [sym_kNot]; ACTIONS 439 [sym_kProcedure];
   ACTIONS 447 [sym_kRaise]; ACTIONS 449 [sym_kRepeat]; ACTIONS 451 [sym_kString];
   ACTIONS 453 [sym_kTry]; ACTIONS 455 [sym_kVar]; ACTIONS 457 [sym_kWhile];
   ACTIONS 459 [sym_kWith]].

(** State 129. *)
Definition ts_parse_table_129 : parse_row :=
  [STATE 6213 [sym_if]; STATE 6327 [sym_ifElse; sym_while; sym_repeat; sym_for; sym_foreach];
   STATE 12104 [sym_exceptionHandler]; STATE 6327 [sym_try; sym_case; sym_block; sym_asm;
   sym_with; sym_raise; sym_statement; sym_goto; sym__statement]; STATE 15991 [sym_ifTr;
   sym_ifElseTr; sym_whileTr; sym_repeatTr; sym_forTr; sym_foreachTr];
   STATE 12526 [sym_exceptionHandlerTr]; STATE 14659 [sym__exceptionHandlersTr];
   STATE 15991 [sym_tryTr; sym_caseTr]; STATE 14251 [sym_blockTr]; STATE 15991 [sym_asmTr;
   sym_withTr; sym_raiseTr; sym_statementTr; sym_gotoTr; sym__statementTr];
   STATE 13915 [sym_assignment]; STATE 11785 [sym_varAssignDef]; STATE 13915 [sym_varDef;
   sym_constDef]; STATE 6166 [sym_label]; STATE 15991 [sym__statementsTr];
   STATE 14659 [sym_statementsTr]; STATE 8019 [sym__expr; sym_exprConditional];
   STATE 7478 [sym__ref; sym_lambda; sym_inherited; sym_exprDot; sym_exprDeref; sym_exprAs;
   sym_exprTpl; sym_exprSubscript; sym_exprCall]; STATE 8019 [sym_exprBinary; sym_exprUnary];
   STATE 7478 [sym_exprParens; sym_exprBrackets; sym__literal; sym_literalString];
   STATE 6664 [sym__literalString; sym_literalChar]; STATE 7478 [sym_literalNumber];
   STATE 7742 [sym__literalInt; sym__literalFloat]; STATE 1380 [sym__ppIf];
   STATE 6327 [sym__ppStatementBlock]; STATE 11840 [aux_sym_labeledStatement_repeat1];
   STATE 12159 [aux_sym__exceptionHandlersTr_repeat1]; STATE 863 [aux_sym__statementsTr_repeat1];
   STATE 6664 [aux_sym_literalString_repeat1]; ACTIONS 397 [anon_sym_SEMI];
   ACTIONS 399 [anon_sym_LBRACK]; ACTIONS 401 [anon_sym_LPAREN];
   ACTIONS 403 [aux_sym__literalString_token1]; ACTIONS 405 [anon_sym_POUND];
   ACTIONS 407 [aux_sym__literalInt_token1]; ACTIONS 409 [aux_sym__literalInt_token2;
   aux_sym__literalInt_token3]; ACTIONS 407 [aux_sym__literalFloat_token1];
   ACTIONS 411 [aux_sym_ppUsesBlock_token1]; ACTIONS 413 [sym_kAdd; sym_kSub];
   ACTIONS 415 [sym_kAt]; ACTIONS 417 [sym_kTrue; sym_kFalse]; ACTIONS 419 [sym_labelNumber];
   ACTIONS 3 [sym__space]; ACTIONS 5 [sym_ppDirective]; ACTIONS 3 [sym_comment];
   ACTIONS 417 [sym_ppFragmentExpr]; ACTIONS 397 [sym_ppFragmentStmt];
   ACTIONS 403 [sym__literalStringMultiline]; ACTIONS 421 [sym_identifier];
   ACTIONS 423 [sym_kSpecialize]; ACTIONS 425 [sym_kOn]; ACTIONS 427 [sym_kAsm];
   ACTIONS 429 [sym_kBegin]; ACTIONS 431 [sym_kCase]; ACTIONS 433 [sym_kConst];
   ACTIONS 599 [sym_kEnd]; ACTIONS 437 [sym_kFor]; ACTIONS 439 [sym_kFunction];
   ACTIONS 441 [sym_kGoto]; ACTIONS 443 [sym_kIf]; ACTIONS 445 [sym_kInherited];
   ACTIONS 417 [sym_kNil]; ACTIONS 415 [sym_kNot]; ACTIONS 439 [sym_kProcedure];
   ACTIONS 447 [sym_kRaise]; ACTIONS 449 [sym_kRepeat]; ACTIONS 451 [sym_kString];
   ACTIONS 453 [sym_kTry]; ACTIONS 455 [sym_kVar]; ACTIONS 457 [sym_kWhile];
   ACTIONS 459 [sym_kWith]].

(** State 130. *)
Definition ts_parse_table_130 : parse_row :=
  [STATE 6213 [sym_if]; STATE 6327 [sym_ifElse; sym_while; sym_repeat; sym_for; sym_foreach];
   STATE 12104 [sym_exceptionHandler]; STATE 6327 [sym_try; sym_case; sym_block; sym_asm;
   sym_with; sym_raise; sym_statement; sym_goto; sym__statement]; STATE 15991 [sym_ifTr;
   sym_ifElseTr; sym_whileTr; sym_repeatTr; sym_forTr; sym_foreachTr];
   STATE 12526 [sym_exceptionHandlerTr]; STATE 14680 [sym__exceptionHandlersTr];
   STATE 15991 [sym_tryTr; sym_caseTr]; STATE 14251 [sym_blockTr]; STATE 15991 [sym_asmTr;
   sym_withTr; sym_raiseTr; sym_statementTr; sym_gotoTr; sym__statementTr];
   STATE 13915 [sym_assignment]; STATE 11785 [sym_varAssignDef]; STATE 13915 [sym_varDef;
   sym_constDef]; STATE 6166 [sym_label]; STATE 15991 [sym__statementsTr];
   STATE 14680 [sym_statementsTr]; STATE 8019 [sym__expr; sym_exprConditional];
   STATE 7478 [sym__ref; sym_lambda; sym_inherited; sym_exprDot; sym_exprDeref; sym_exprAs;
   sym_exprTpl; sym_exprSubscript; sym_exprCall]; STATE 8019 [sym_exprBinary; sym_exprUnary];
   STATE 7478 [sym_exprParens; sym_exprBrackets; sym__literal; sym_literalString];
   STATE 6664 [sym__literalString; sym_literalChar]; STATE 7478 [sym_literalNumber];
   STATE 7742 [sym__literalInt; sym__literalFloat]; STATE 1380 [sym__ppIf];
   STATE 6327 [sym__ppStatementBlock]; STATE 11840 [aux_sym_labeledStatement_repeat1];
   STATE 12159 [aux_sym__exceptionHandlersTr_repeat1]; STATE 863 [aux_sym__statementsTr_repeat1];
   STATE 6664 [aux_sym_literalString_repeat1]; ACTIONS 397 [anon_sym_SEMI];
   ACTIONS 399 [anon_sym_LBRACK]; ACTIONS 401 [anon_sym_LPAREN];
   ACTIONS 403 [aux_sym__literalString_token1]; ACTIONS 405 [anon_sym_POUND];
   ACTIONS 407 [aux_sym__literalInt_token1]; ACTIONS 409 [aux_sym__literalInt_token2;
   aux_sym__literalInt_token3]; ACTIONS 407 [aux_sym__literalFloat_token1];
   ACTIONS 411 [aux_sym_ppUsesBlock_token1]; ACTIONS 413 [sym_kAdd; sym_kSub];
   ACTIONS 415 [sym_kAt]; ACTIONS 417 [sym_kTrue; sym_kFalse]; ACTIONS 419 [sym_labelNumber];
   ACTIONS 3 [sym__space]; ACTIONS 5 [sym_ppDirective]; ACTIONS 3 [sym_comment];
   ACTIONS 417 [sym_ppFragmentExpr]; ACTIONS 397 [sym_ppFragmentStmt];
   ACTIONS 403 [sym__literalStringMultiline]; ACTIONS 421 [sym_identifier];
   ACTIONS 423 [sym_kSpecialize]; ACTIONS 425 [sym_kOn]; ACTIONS 427 [sym_kAsm];
   ACTIONS 429 [sym_kBegin]; ACTIONS 431 [sym_kCase]; ACTIONS 433 [sym_kConst];
   ACTIONS 601 [sym_kEnd]; ACTIONS 437 [sym_kFor]; ACTIONS 439 [sym_kFunction];
   ACTIONS 441 [sym_kGoto]; ACTIONS 443 [sym_kIf]; ACTIONS 445 [sym_kInherited];
   ACTIONS 417 [sym_kNil]; ACTIONS 415 [sym_kNot]; ACTIONS 439 [sym_kProcedure];
   ACTIONS 447 [sym_kRaise]; ACTIONS 449 [sym_kRepeat]; ACTIONS 451 [sym_kString];
   ACTIONS 453 [sym_kTry]; ACTIONS 455 [sym_kVar]; ACTIONS 457 [sym_kWhile];
   ACTIONS 459 [sym_kWith]].

(** State 131. *)
Definition ts_parse_table_131 : parse_row :=
  [STATE 6213 [sym_if]; STATE 6327 [sym_ifElse; sym_while; sym_repeat; sym_for; sym_foreach];
   STATE 12104 [sym_exceptionHandler]; STATE 6327 [sym_try; sym_case; sym_block; sym_asm;
   sym_with; sym_raise; sym_statement; sym_goto; sym__statement]; STATE 15991 [sym_ifTr;
   sym_ifElseTr; sym_whileTr; sym_repeatTr; sym_forTr; sym_foreachTr];
   STATE 12526 [sym_exceptionHandlerTr]; STATE 14261 [sym__exceptionHandlersTr];
   STATE 15991 [sym_tryTr; sym_caseTr]; STATE 14251 [sym_blockTr]; STATE 15991 [sym_asmTr;
   sym_withTr; sym_raiseTr; sym_statementTr; sym_gotoTr; sym__statementTr];
   STATE 13915 [sym_assignment]; STATE 11785 [sym_varAssignDef]; STATE 13915 [sym_varDef;
   sym_constDef]; STATE 6166 [sym_label]; STATE 15991 [sym__statementsTr];
   STATE 14261 [sym_statementsTr]; STATE 8019 [sym__expr; sym_exprConditional];
   STATE 7478 [sym__ref; sym_lambda; sym_inherited; sym_exprDot; sym_exprDeref; sym_exprAs;
   sym_exprTpl; sym_exprSubscript; sym_exprCall]; STATE 8019 [sym_exprBinary; sym_exprUnary];
   STATE 7478 [sym_exprParens; sym_exprBrackets; sym__literal; sym_literalString];
   STATE 6664 [sym__literalString; sym_literalChar]; STATE 7478 [sym_literalNumber];
   STATE 7742 [sym__literalInt; sym__literalFloat]; STATE 1380 [sym__ppIf];
   STATE 6327 [sym__ppStatementBlock]; STATE 11840 [aux_sym_labeledStatement_repeat1];
   STATE 12159 [aux_sym__exceptionHandlersTr_repeat1]; STATE 863 [aux_sym__statementsTr_repeat1];
   STATE 6664 [aux_sym_literalString_repeat1]; ACTIONS 397 [anon_sym_SEMI];
   ACTIONS 399 [anon_sym_LBRACK]; ACTIONS 401 [anon_sym_LPAREN];
   ACTIONS 403 [aux_sym__literalString_token1]; ACTIONS 405 [anon_sym_POUND];
   ACTIONS 407 [aux_sym__literalInt_token1]; ACTIONS 409 [aux_sym__literalInt_token2;
   aux_sym__literalInt_token3]; ACTIONS 407 [aux_sym__literalFloat_token1];
   ACTIONS 411 [aux_sym_ppUsesBlock_token1]; ACTIONS 413 [sym_kAdd; sym_kSub];
   ACTIONS 415 [sym_kAt]; ACTIONS 417 [sym_kTrue; sym_kFalse]; ACTIONS 419 [sym_labelNumber];
   ACTIONS 3 [sym__space]; ACTIONS 5 [sym_ppDirective]; ACTIONS 3 [sym_comment];
   ACTIONS 417 [sym_ppFragmentExpr]; ACTIONS 397 [sym_ppFragmentStmt];
   ACTIONS 403 [sym__literalStringMultiline]; ACTIONS 421 [sym_identifier];
   ACTIONS 423 [sym_kSpecialize]; ACTIONS 425 [sym_kOn]; ACTIONS 427 [sym_kAsm];
   ACTIONS 429 [sym_kBegin]; ACTIONS 431 [sym_kCase]; ACTIONS 433 [sym_kConst];
   ACTIONS 603 [sym_kEnd]; ACTIONS 437 [sym_kFor]; ACTIONS 439 [sym_kFunction];
   ACTIONS 441 [sym_kGoto]; ACTIONS 443 [sym_kIf]; ACTIONS 445 [sym_kInherited];
   ACTIONS 417 [sym_kNil]; ACTIONS 415 [sym_kNot]; ACTIONS 439 [sym_kProcedure];
   ACTIONS 447 [sym_kRaise]; ACTIONS 449 [sym_kRepeat]; ACTIONS 451 [sym_kString];
   ACTIONS 453 [sym_kTry]; ACTIONS 455 [sym_kVar]; ACTIONS 457 [sym_kWhile];
   ACTIONS 459 [sym_kWith]].

(** State 132. *)
Definition ts_parse_table_132 : parse_row :=
  [STATE 6213 [sym_if]; STATE 6327 [sym_ifElse; sym_while; sym_repeat; sym_for; sym_foreach];
   STATE 12104 [sym_exceptionHandler]; STATE 6327 [sym_try; sym_case; sym_block; sym_asm;
   sym_with; sym_raise; sym_statement; sym_goto; sym__statement]; STATE 15991 [sym_ifTr;
   sym_ifElseTr; sym_whileTr; sym_repeatTr; sym_forTr; sym_foreachTr];
   STATE 12526 [sym_exceptionHandlerTr]; STATE 15094 [sym__exceptionHandlersTr];
   STATE 15991 [sym_tryTr; sym_caseTr]; STATE 14251 [sym_blockTr]; STATE 15991 [sym_asmTr;
   sym_withTr; sym_raiseTr; sym_statementTr; sym_gotoTr; sym__statementTr];
   STATE 13915 [sym_assignment]; STATE 11785 [sym_varAssignDef]; STATE 13915 [sym_varDef;
   sym_constDef]; STATE 6166 [sym_label]; STATE 15991 [sym__statementsTr];
   STATE 15094 [sym_statementsTr]; STATE 8019 [sym__expr; sym_exprConditional];
   STATE 7478 [sym__ref; sym_lambda; sym_inherited; sym_exprDot; sym_exprDeref; sym_exprAs;
   sym_exprTpl; sym_exprSubscript; sym_exprCall]; STATE 8019 [sym_exprBinary; sym_exprUnary];
   STATE 7478 [sym_exprParens; sym_exprBrackets; sym__literal; sym_literalString];
   STATE 6664 [sym__literalString; sym_literalChar]; STATE 7478 [sym_literalNumber];
   STATE 7742 [sym__literalInt; sym__literalFloat]; STATE 1380 [sym__ppIf];
   STATE 6327 [sym__ppStatementBlock]; STATE 11840 [aux_sym_labeledStatement_repeat1];
   STATE 12159 [aux_sym__exceptionHandlersTr_repeat1]; STATE 863 [aux_sym__statementsTr_repeat1];
   STATE 6664 [aux_sym_literalString_repeat1]; ACTIONS 397 [anon_sym_SEMI];
   ACTIONS 399 [anon_sym_LBRACK]; ACTIONS 401 [anon_sym_LPAREN];
   ACTIONS 403 [aux_sym__literalString_token1]; ACTIONS 405 [anon_sym_POUND];
   ACTIONS 407 [aux_sym__literalInt_token1]; ACTIONS 409 [aux_sym__literalInt_token2;
   aux_sym__literalInt_token3]; ACTIONS 407 [aux_sym__literalFloat_token1];
   ACTIONS 411 [aux_sym_ppUsesBlock_token1]; ACTIONS 413 [sym_kAdd; sym_kSub];
   ACTIONS 415 [sym_kAt]; ACTIONS 417 [sym_kTrue; sym_kFalse]; ACTIONS 419 [sym_labelNumber];
   ACTIONS 3 [sym__space]; ACTIONS 5 [sym_ppDirective]; ACTIONS 3 [sym_comment];
   ACTIONS 417 [sym_ppFragmentExpr]; ACTIONS 397 [sym_ppFragmentStmt];
   ACTIONS 403 [sym__literalStringMultiline]; ACTIONS 421 [sym_identifier];
   ACTIONS 423 [sym_kSpecialize]; ACTIONS 425 [sym_kOn]; ACTIONS 427 [sym_kAsm];
   ACTIONS 429 [sym_kBegin]; ACTIONS 431 [sym_kCase]; ACTIONS 433 [sym_kConst];
   ACTIONS 605 [sym_kEnd]; ACTIONS 437 [sym_kFor]; ACTIONS 439 [sym_kFunction];
   ACTIONS 441 [sym_kGoto]; ACTIONS 443 [sym_kIf]; ACTIONS 445 [sym_kInherited];
   ACTIONS 417 [sym_kNil]; ACTIONS 415 [sym_kNot]; ACTIONS 439 [sym_kProcedure];
   ACTIONS 447 [sym_kRaise]; ACTIONS 449 [sym_kRepeat]; ACTIONS 451 [sym_kString];
   ACTIONS 453 [sym_kTry]; ACTIONS 455 [sym_kVar]; ACTIONS 457 [sym_kWhile];
   ACTIONS 459 [sym_kWith]].

(** State 133. *)
Definition ts_parse_table_133 : parse_row :=
  [STATE 5784 [sym_if]; STATE 5683 [sym_ifElse; sym_while; sym_repeat; sym_for; sym_foreach;
   sym_try; sym_case; sym_block; sym_asm; sym_with; sym_raise; sym_statement; sym_goto;
   sym__statement]; STATE 11786 [sym_ifTr; sym_ifElseTr; sym_whileTr; sym_repeatTr; sym_forTr;
   sym_foreachTr; sym_tryTr; sym_caseTr]; STATE 11959 [sym_blockTr]; STATE 11786 [sym_asmTr;
   sym_withTr; sym_raiseTr; sym_statementTr; sym_gotoTr; sym__statementTr];
   STATE 11608 [sym_assignment]; STATE 11896 [sym_varAssignDef]; STATE 11608 [sym_varDef;
   sym_constDef]; STATE 5708 [sym_label]; STATE 11786 [sym__statementsTr]; STATE 7327 [sym__expr;
   sym_exprConditional]; STATE 7013 [sym__ref; sym_lambda; sym_inherited; sym_exprDot;
   sym_exprDeref; sym_exprAs; sym_exprTpl; sym_exprSubscript; sym_exprCall];
   STATE 7327 [sym_exprBinary; sym_exprUnary]; STATE 7013 [sym_exprParens; sym_exprBrackets;
   sym__literal; sym_literalString]; STATE 6066 [sym__literalString; sym_literalChar];
   STATE 7013 [sym_literalNumber]; STATE 7084 [sym__literalInt; sym__literalFloat];
   STATE 1381 [sym__ppIf]; STATE 5683 [sym__ppStatementBlock];
   STATE 11177 [aux_sym_labeledStatement_repeat1]; STATE 861 [aux_sym__statementsTr_repeat1];
   STATE 6066 [aux_sym_literalString_repeat1]; ACTIONS 607 [anon_sym_SEMI];
   ACTIONS 609 [anon_sym_LBRACK]; ACTIONS 611 [anon_sym_LPAREN];
   ACTIONS 613 [aux_sym__literalString_token1]; ACTIONS 615 [anon_sym_POUND];
   ACTIONS 617 [aux_sym__literalInt_token1]; ACTIONS 619 [aux_sym__literalInt_token2;
   aux_sym__literalInt_token3]; ACTIONS 617 [aux_sym__literalFloat_token1];
   ACTIONS 411 [aux_sym_ppUsesBlock_token1]; ACTIONS 621 [sym_kAdd; sym_kSub];
   ACTIONS 623 [sym_kAt]; ACTIONS 625 [sym_kTrue; sym_kFalse]; ACTIONS 627 [sym_labelNumber];
   ACTIONS 3 [sym__space]; ACTIONS 5 [sym_ppDirective]; ACTIONS 3 [sym_comment];
   ACTIONS 625 [sym_ppFragmentExpr]; ACTIONS 607 [sym_ppFragmentStmt];
   ACTIONS 613 [sym__literalStringMultiline]; ACTIONS 629 [sym_identifier];
   ACTIONS 631 [sym_kSpecialize]; ACTIONS 633 [sym_kAsm]; ACTIONS 635 [sym_kBegin];
   ACTIONS 637 [sym_kCase]; ACTIONS 639 [sym_kConst]; ACTIONS 641 [sym_kEnd; sym_kFinalization];
   ACTIONS 643 [sym_kFor]; ACTIONS 645 [sym_kFunction]; ACTIONS 647 [sym_kGoto];
   ACTIONS 649 [sym_kIf]; ACTIONS 641 [sym_kImplementation]; ACTIONS 651 [sym_kInherited];
   ACTIONS 641 [sym_kInitialization; sym_kInterface]; ACTIONS 625 [sym_kNil];
   ACTIONS 623 [sym_kNot]; ACTIONS 645 [sym_kProcedure]; ACTIONS 653 [sym_kRaise];
   ACTIONS 655 [sym_kRepeat]; ACTIONS 657 [sym_kString]; ACTIONS 659 [sym_kTry];
   ACTIONS 661 [sym_kVar]; ACTIONS 663 [sym_kWhile]; ACTIONS 665 [sym_kWith]].

(** State 134. *)
Definition ts_parse_table_134 : parse_row :=
  [STATE 5784 [sym_if]; STATE 5683 [sym_ifElse; sym_while; sym_repeat; sym_for; sym_foreach;
   sym_try; sym_case; sym_block; sym_asm; sym_with; sym_raise; sym_statement; sym_goto;
   sym__statement]; STATE 11839 [sym_ifTr; sym_ifElseTr; sym_whileTr; sym_repeatTr; sym_forTr;
   sym_foreachTr; sym_tryTr; sym_caseTr]; STATE 11959 [sym_blockTr]; STATE 11839 [sym_asmTr;
   sym_withTr; sym_raiseTr; sym_statementTr; sym_gotoTr; sym__statementTr];
   STATE 11608 [sym_assignment]; STATE 11896 [sym_varAssignDef]; STATE 11608 [sym_varDef;
   sym_constDef]; STATE 5708 [sym_label]; STATE 11839 [sym__statementsTr]; STATE 7327 [sym__expr;
   sym_exprConditional]; STATE 7013 [sym__ref; sym_lambda; sym_inherited; sym_exprDot;
   sym_exprDeref; sym_exprAs; sym_exprTpl; sym_exprSubscript; sym_exprCall];
   STATE 7327 [sym_exprBinary; sym_exprUnary]; STATE 7013 [sym_exprParens; sym_exprBrackets;
   sym__literal; sym_literalString]; STATE 6066 [sym__literalString; sym_literalChar];
   STATE 7013 [sym_literalNumber]; STATE 7084 [sym__literalInt; sym__literalFloat];
   STATE 1381 [sym__ppIf]; STATE 5683 [sym__ppStatementBlock];
   STATE 11177 [aux_sym_labeledStatement_repeat1]; STATE 861 [aux_sym__statementsTr_repeat1];
   STATE 6066 [aux_sym_literalString_repeat1]; ACTIONS 607 [anon_sym_SEMI];
   ACTIONS 609 [anon_sym_LBRACK]; ACTIONS 611 [anon_sym_LPAREN];
   ACTIONS 613 [aux_sym__literalString_token1]; ACTIONS 615 [anon_sym_POUND];
   ACTIONS 617 [aux_sym__literalInt_token1]; ACTIONS 619 [aux_sym__literalInt_token2;
   aux_sym__literalInt_token3]; ACTIONS 617 [aux_sym__literalFloat_token1];
   ACTIONS 411 [aux_sym_ppUsesBlock_token1]; ACTIONS 621 [sym_kAdd; sym_kSub];
   ACTIONS 623 [sym_kAt]; ACTIONS 625 [sym_kTrue; sym_kFalse]; ACTIONS 627 [sym_labelNumber];
   ACTIONS 3 [sym__space]; ACTIONS 5 [sym_ppDirective]; ACTIONS 3 [sym_comment];
   ACTIONS 625 [sym_ppFragmentExpr]; ACTIONS 607 [sym_ppFragmentStmt];
   ACTIONS 613 [sym__literalStringMultiline]; ACTIONS 629 [sym_identifier];
   ACTIONS 631 [sym_kSpecialize]; ACTIONS 633 [sym_kAsm]; ACTIONS 635 [sym_kBegin];
   ACTIONS 637 [sym_kCase]; ACTIONS 639 [sym_kConst]; ACTIONS 667 [sym_kEnd; sym_kFinalization];
   ACTIONS 643 [sym_kFor]; ACTIONS 645 [sym_kFunction]; ACTIONS 647 [sym_kGoto];
   ACTIONS 649 [sym_kIf]; ACTIONS 667 [sym_kImplementation]; ACTIONS 651 [sym_kInherited];
   ACTIONS 667 [sym_kInitialization; sym_kInterface]; ACTIONS 625 [sym_kNil];
   ACTIONS 623 [sym_kNot]; ACTIONS 645 [sym_kProcedure]; ACTIONS 653 [sym_kRaise];
   ACTIONS 655 [sym_kRepeat]; ACTIONS 657 [sym_kString]; ACTIONS 659 [sym_kTry];
   ACTIONS 661 [sym_kVar]; ACTIONS 663 [sym_kWhile]; ACTIONS 665 [sym_kWith]].

(** State 135. *)
Definition ts_parse_table_135 : parse_row :=
  [STATE 5784 [sym_if]; STATE 5683 [sym_ifElse; sym_while; sym_repeat; sym_for; sym_foreach;
   sym_try; sym_case; sym_block; sym_asm; sym_with; sym_raise; sym_statement; sym_goto;
   sym__statement]; STATE 11890 [sym_ifTr; sym_ifElseTr; sym_whileTr; sym_repeatTr; sym_forTr;
   sym_foreachTr; sym_tryTr; sym_caseTr]; STATE 11959 [sym_blockTr]; STATE 11890 [sym_asmTr;
   sym_withTr; sym_raiseTr; sym_statementTr; sym_gotoTr; sym__statementTr];
   STATE 11608 [sym_assignment]; STATE 11896 [sym_varAssignDef]; STATE 11608 [sym_varDef;
   sym_constDef]; STATE 5708 [sym_label]; STATE 11890 [sym__statementsTr]; STATE 7327 [sym__expr;
   sym_exprConditional]; STATE 7013 [sym__ref; sym_lambda; sym_inherited; sym_exprDot;
   sym_exprDeref; sym_exprAs; sym_exprTpl; sym_exprSubscript; sym_exprCall];
   STATE 7327 [sym_exprBinary; sym_exprUnary]; STATE 7013 [sym_exprParens; sym_exprBrackets;
   sym__literal; sym_literalString]; STATE 6066 [sym__literalString; sym_literalChar];
   STATE 7013 [sym_literalNumber]; STATE 7084 [sym__literalInt; sym__literalFloat];
   STATE 1381 [sym__ppIf]; STATE 5683 [sym__ppStatementBlock];
   STATE 11177 [aux_sym_labeledStatement_repeat1]; STATE 861 [aux_sym__statementsTr_repeat1];
   STATE 6066 [aux_sym_literalString_repeat1]; ACTIONS 607 [anon_sym_SEMI];
   ACTIONS 609 [anon_sym_LBRACK]; ACTIONS 611 [anon_sym_LPAREN];
   ACTIONS 613 [aux_sym__literalString_token1]; ACTIONS 615 [anon_sym_POUND];
   ACTIONS 617 [aux_sym__literalInt_token1]; ACTIONS 619 [aux_sym__literalInt_token2;
   aux_sym__literalInt_token3]; ACTIONS 617 [aux_sym__literalFloat_token1];
   ACTIONS 411 [aux_sym_ppUsesBlock_token1]; ACTIONS 621 [sym_kAdd; sym_kSub];
   ACTIONS 623 [sym_kAt]; ACTIONS 625 [sym_kTrue; sym_kFalse]; ACTIONS 627 [sym_labelNumber];
   ACTIONS 3 [sym__space]; ACTIONS 5 [sym_ppDirective]; ACTIONS 3 [sym_comment];
   ACTIONS 625 [sym_ppFragmentExpr]; ACTIONS 607 [sym_ppFragmentStmt];
   ACTIONS 613 [sym__literalStringMultiline]; ACTIONS 629 [sym_identifier];
   ACTIONS 631 [sym_kSpecialize]; ACTIONS 633 [sym_kAsm]; ACTIONS 635 [sym_kBegin];
   ACTIONS 637 [sym_kCase]; ACTIONS 639 [sym_kConst]; ACTIONS 669 [sym_kEnd; sym_kFinalization];
   ACTIONS 643 [sym_kFor]; ACTIONS 645 [sym_kFunction]; ACTIONS 647 [sym_kGoto];
   ACTIONS 649 [sym_kIf]; ACTIONS 669 [sym_kImplementation]; ACTIONS 651 [sym_kInherited];
   ACTIONS 669 [sym_kInitialization; sym_kInterface]; ACTIONS 625 [sym_kNil];
   ACTIONS 623 [sym_kNot]; ACTIONS 645 [sym_kProcedure]; ACTIONS 653 [sym_kRaise];
   ACTIONS 655 [sym_kRepeat]; ACTIONS 657 [sym_kString]; ACTIONS 659 [sym_kTry];
   ACTIONS 661 [sym_kVar]; ACTIONS 663 [sym_kWhile]; ACTIONS 665 [sym_kWith]].

(** State 136. *)
Definition ts_parse_table_136 : parse_row :=
  [STATE 6061 [sym_if]; STATE 6122 [sym_ifElse; sym_while; sym_repeat; sym_for; sym_foreach;
   sym_try; sym_case; sym_block; sym_asm; sym_with; sym_raise; sym_statement; sym_goto;
   sym__statement]; STATE 13608 [sym_ifTr; sym_ifElseTr; sym_whileTr; sym_repeatTr; sym_forTr;
   sym_foreachTr; sym_tryTr; sym_caseTr]; STATE 13949 [sym_blockTr]; STATE 13608 [sym_asmTr;
   sym_withTr; sym_raiseTr; sym_statementTr; sym_gotoTr; sym__statementTr];
   STATE 12950 [sym_assignment]; STATE 11871 [sym_varAssignDef]; STATE 12950 [sym_varDef;
   sym_constDef]; STATE 6126 [sym_label]; STATE 13608 [sym__statementsTr];
   STATE 13371 [sym_statementsTr]; STATE 7879 [sym__expr; sym_exprConditional];
   STATE 7259 [sym__ref; sym_lambda; sym_inherited; sym_exprDot; sym_exprDeref; sym_exprAs;
   sym_exprTpl; sym_exprSubscript; sym_exprCall]; STATE 7879 [sym_exprBinary; sym_exprUnary];
   STATE 7259 [sym_exprParens; sym_exprBrackets; sym__literal; sym_literalString];
   STATE 6541 [sym__literalString; sym_literalChar]; STATE 7259 [sym_literalNumber];
   STATE 7426 [sym__literalInt; sym__literalFloat]; STATE 1382 [sym__ppIf];
   STATE 6122 [sym__ppStatementBlock]; STATE 11556 [aux_sym_labeledStatement_repeat1];
   STATE 862 [aux_sym__statementsTr_repeat1]; STATE 6541 [aux_sym_literalString_repeat1];
   ACTIONS 671 [anon_sym_SEMI]; ACTIONS 673 [anon_sym_LBRACK]; ACTIONS 675 [anon_sym_LPAREN];
   ACTIONS 677 [aux_sym__literalString_token1]; ACTIONS 679 [anon_sym_POUND];
   ACTIONS 681 [aux_sym__literalInt_token1]; ACTIONS 683 [aux_sym__literalInt_token2;
   aux_sym__literalInt_token3]; ACTIONS 681 [aux_sym__literalFloat_token1];
   ACTIONS 411 [aux_sym_ppUsesBlock_token1]; ACTIONS 685 [sym_kAdd; sym_kSub];
   ACTIONS 687 [sym_kAt]; ACTIONS 689 [sym_kTrue; sym_kFalse]; ACTIONS 691 [sym_labelNumber];
   ACTIONS 3 [sym__space]; ACTIONS 5 [sym_ppDirective]; ACTIONS 3 [sym_comment];
   ACTIONS 689 [sym_ppFragmentExpr]; ACTIONS 671 [sym_ppFragmentStmt];
   ACTIONS 677 [sym__literalStringMultiline]; ACTIONS 693 [sym_identifier];
   ACTIONS 695 [sym_kSpecialize]; ACTIONS 697 [sym_kAsm]; ACTIONS 699 [sym_kBegin];
   ACTIONS 701 [sym_kCase]; ACTIONS 703 [sym_kConst]; ACTIONS 705 [sym_kExcept];
   ACTIONS 707 [sym_kFinally]; ACTIONS 709 [sym_kFor]; ACTIONS 711 [sym_kFunction];
   ACTIONS 713 [sym_kGoto]; ACTIONS 715 [sym_kIf]; ACTIONS 717 [sym_kInherited];
   ACTIONS 689 [sym_kNil]; ACTIONS 687 [sym_kNot]; ACTIONS 711 [sym_kProcedure];
   ACTIONS 719 [sym_kRaise]; ACTIONS 721 [sym_kRepeat]; ACTIONS 723 [sym_kString];
   ACTIONS 725 [sym_kTry]; ACTIONS 727 [sym_kVar]; ACTIONS 729 [sym_kWhile];
   ACTIONS 731 [sym_kWith]].

(** State 137. *)
Definition ts_parse_table_137 : parse_row :=
  [STATE 12283 [sym_genericDot; sym_genericTpl; sym__genericName]; STATE 17 [sym__ppIf];
   STATE 137 [sym_ppBlock; sym_declType]; STATE 12022 [sym_rttiAttributes];
   STATE 137 [aux_sym_declTypes_repeat1]; STATE 12404 [aux_sym_rttiAttributes_repeat2];
   ACTIONS 733 [anon_sym_SEMI; anon_sym_COMMA]; ACTIONS 735 [anon_sym_LBRACK];
   ACTIONS 738 [anon_sym_LPAREN]; ACTIONS 733 [aux_sym__literalString_token1; anon_sym_POUND];
   ACTIONS 738 [aux_sym__literalInt_token1]; ACTIONS 733 [aux_sym__literalInt_token2;
   aux_sym__literalInt_token3]; ACTIONS 738 [aux_sym__literalFloat_token1];
   ACTIONS 740 [aux_sym_ppUsesBlock_token1]; ACTIONS 733 [aux_sym_ppUsesBlock_token2;
   aux_sym_ppUsesBlock_token3]; ACTIONS 738 [sym_kAdd; sym_kSub]; ACTIONS 733 [sym_kAt;
   sym_kTrue; sym_kFalse]; ACTIONS 3 [sym__space]; ACTIONS 5 [sym_ppDirective];
   ACTIONS 3 [sym_comment]; ACTIONS 733 [sym_ppFragmentExpr; sym__literalStringMultiline];
   ACTIONS 743 [sym_identifier]; ACTIONS 733 [sym_kDefault; sym_kNodefault; sym_kDispId];
   ACTIONS 746 [sym_kGeneric]; ACTIONS 733 [sym_kSpecialize; sym_kOperator; sym_kPublic;
   sym_kStatic; sym_kVirtual; sym_kAbstract; sym_kDynamic; sym_kOverride; sym_kOverload;
   sym_kReintroduce; sym_kStdcall; sym_kCdecl; sym_kCppdecl; sym_kPascal; sym_kRegister;
   sym_kMwpascal; sym_kMessage; sym_kDeprecated; sym_kExperimental; sym_kPlatform;
   sym_kUnimplemented; sym_kCvar; sym_kExport; sym_kFar; sym_kNear; sym_kSafecall;
   sym_kAssembler; sym_kNostackframe; sym_kInterrupt; sym_kNoreturn; sym_kIocheck; sym_kLocal;
   sym_kHardfloat; sym_kSoftfloat; sym_kMs_abi_default; sym_kMs_abi_cdecl; sym_kSaveregisters;
   sym_kSysv_abi_default; sym_kSysv_abi_cdecl; sym_kVectorcall; sym_kVarargs; sym_kWinapi;
   sym_kAlias; sym_kAsm; sym_kBegin; sym_kCase; sym_kClass; sym_kConst; sym_kConstructor;
   sym_kDestructor; sym_kExports; sym_kFor; sym_kFunction; sym_kGoto; sym_kIf; sym_kInherited;
   sym_kLabel; sym_kNil; sym_kNot; sym_kProcedure; sym_kProperty; sym_kRaise; sym_kRepeat;
   sym_kResourcestring; sym_kString; sym_kThreadvar; sym_kTry; sym_kType; sym_kUses; sym_kVar;
   sym_kWhile; sym_kWith]].

(** State 138. *)
Definition ts_parse_table_138 : parse_row :=
  [STATE 6061 [sym_if]; STATE 6122 [sym_ifElse; sym_while; sym_repeat; sym_for; sym_foreach;
   sym_try; sym_case; sym_block; sym_asm; sym_with; sym_raise; sym_statement; sym_goto;
   sym__statement]; STATE 13608 [sym_ifTr; sym_ifElseTr; sym_whileTr; sym_repeatTr; sym_forTr;
   sym_foreachTr; sym_tryTr; sym_caseTr]; STATE 13949 [sym_blockTr]; STATE 13608 [sym_asmTr;
   sym_withTr; sym_raiseTr; sym_statementTr; sym_gotoTr; sym__statementTr];
   STATE 12950 [sym_assignment]; STATE 11871 [sym_varAssignDef]; STATE 12950 [sym_varDef;
   sym_constDef]; STATE 6126 [sym_label]; STATE 13608 [sym__statementsTr];
   STATE 13066 [sym_statementsTr]; STATE 7879 [sym__expr; sym_exprConditional];
   STATE 7259 [sym__ref; sym_lambda; sym_inherited; sym_exprDot; sym_exprDeref; sym_exprAs;
   sym_exprTpl; sym_exprSubscript; sym_exprCall]; STATE 7879 [sym_exprBinary; sym_exprUnary];
   STATE 7259 [sym_exprParens; sym_exprBrackets; sym__literal; sym_literalString];
   STATE 6541 [sym__literalString; sym_literalChar]; STATE 7259 [sym_literalNumber];
   STATE 7426 [sym__literalInt; sym__literalFloat]; STATE 1382 [sym__ppIf];
   STATE 6122 [sym__ppStatementBlock]; STATE 11556 [aux_sym_labeledStatement_repeat1];
   STATE 862 [aux_sym__statementsTr_repeat1]; STATE 6541 [aux_sym_literalString_repeat1];
   ACTIONS 671 [anon_sym_SEMI]; ACTIONS 673 [anon_sym_LBRACK]; ACTIONS 675 [anon_sym_LPAREN];
   ACTIONS 677 [aux_sym__literalString_token1]; ACTIONS 679 [anon_sym_POUND];
   ACTIONS 681 [aux_sym__literalInt_token1]; ACTIONS 683 [aux_sym__literalInt_token2;
   aux_sym__literalInt_token3]; ACTIONS 681 [aux_sym__literalFloat_token1];
   ACTIONS 411 [aux_sym_ppUsesBlock_token1]; ACTIONS 685 [sym_kAdd; sym_kSub];
   ACTIONS 687 [sym_kAt]; ACTIONS 689 [sym_kTrue; sym_kFalse]; ACTIONS 691 [sym_labelNumber];
   ACTIONS 3 [sym__space]; ACTIONS 5 [sym_ppDirective]; ACTIONS 3 [sym_comment];
   ACTIONS 689 [sym_ppFragmentExpr]; ACTIONS 671 [sym_ppFragmentStmt];
   ACTIONS 677 [sym__literalStringMultiline]; ACTIONS 693 [sym_identifier];
   ACTIONS 695 [sym_kSpecialize]; ACTIONS 697 [sym_kAsm]; ACTIONS 699 [sym_kBegin];
   ACTIONS 701 [sym_kCase]; ACTIONS 703 [sym_kConst]; ACTIONS 749 [sym_kExcept];
   ACTIONS 751 [sym_kFinally]; ACTIONS 709 [sym_kFor]; ACTIONS 711 [sym_kFunction];
   ACTIONS 713 [sym_kGoto]; ACTIONS 715 [sym_kIf]; ACTIONS 717 [sym_kInherited];
   ACTIONS 689 [sym_kNil]; ACTIONS 687 [sym_kNot]; ACTIONS 711 [sym_kProcedure];
   ACTIONS 719 [sym_kRaise]; ACTIONS 721 [sym_kRepeat]; ACTIONS 723 [sym_kString];
   ACTIONS 725 [sym_kTry]; ACTIONS 727 [sym_kVar]; ACTIONS 729 [sym_kWhile];
   ACTIONS 731 [sym_kWith]].

(** State 139. *)
Definition ts_parse_table_139 : parse_row :=
  [STATE 6061 [sym_if]; STATE 6122 [sym_ifElse; sym_while; sym_repeat; sym_for; sym_foreach;
   sym_try; sym_case; sym_block; sym_asm; sym_with; sym_raise; sym_statement; sym_goto;
   sym__statement]; STATE 13608 [sym_ifTr; sym_ifElseTr; sym_whileTr; sym_repeatTr; sym_forTr;
   sym_foreachTr; sym_tryTr; sym_caseTr]; STATE 13949 [sym_blockTr]; STATE 13608 [sym_asmTr;
   sym_withTr; sym_raiseTr; sym_statementTr; sym_gotoTr; sym__statementTr];
   STATE 12950 [sym_assignment]; STATE 11871 [sym_varAssignDef]; STATE 12950 [sym_varDef;
   sym_constDef]; STATE 6126 [sym_label]; STATE 13608 [sym__statementsTr];
   STATE 13532 [sym_statementsTr]; STATE 7879 [sym__expr; sym_exprConditional];
   STATE 7259 [sym__ref; sym_lambda; sym_inherited; sym_exprDot; sym_exprDeref; sym_exprAs;
   sym_exprTpl; sym_exprSubscript; sym_exprCall]; STATE 7879 [sym_exprBinary; sym_exprUnary];
   STATE 7259 [sym_exprParens; sym_exprBrackets; sym__literal; sym_literalString];
   STATE 6541 [sym__literalString; sym_literalChar]; STATE 7259 [sym_literalNumber];
   STATE 7426 [sym__literalInt; sym__literalFloat]; STATE 1382 [sym__ppIf];
   STATE 6122 [sym__ppStatementBlock]; STATE 11556 [aux_sym_labeledStatement_repeat1];
   STATE 862 [aux_sym__statementsTr_repeat1]; STATE 6541 [aux_sym_literalString_repeat1];
   ACTIONS 671 [anon_sym_SEMI]; ACTIONS 673 [anon_sym_LBRACK]; ACTIONS 675 [anon_sym_LPAREN];
   ACTIONS 677 [aux_sym__literalString_token1]; ACTIONS 679 [anon_sym_POUND];
   ACTIONS 681 [aux_sym__literalInt_token1]; ACTIONS 683 [aux_sym__literalInt_token2;
   aux_sym__literalInt_token3]; ACTIONS 681 [aux_sym__literalFloat_token1];
   ACTIONS 411 [aux_sym_ppUsesBlock_token1]; ACTIONS 685 [sym_kAdd; sym_kSub];
   ACTIONS 687 [sym_kAt]; ACTIONS 689 [sym_kTrue; sym_kFalse]; ACTIONS 691 [sym_labelNumber];
   ACTIONS 3 [sym__space]; ACTIONS 5 [sym_ppDirective]; ACTIONS 3 [sym_comment];
   ACTIONS 689 [sym_ppFragmentExpr]; ACTIONS 671 [sym_ppFragmentStmt];
   ACTIONS 677 [sym__literalStringMultiline]; ACTIONS 693 [sym_identifier];
   ACTIONS 695 [sym_kSpecialize]; ACTIONS 697 [sym_kAsm]; ACTIONS 699 [sym_kBegin];
   ACTIONS 701 [sym_kCase]; ACTIONS 703 [sym_kConst]; ACTIONS 753 [sym_kExcept];
   ACTIONS 755 [sym_kFinally]; ACTIONS 709 [sym_kFor]; ACTIONS 711 [sym_kFunction];
   ACTIONS 713 [sym_kGoto]; ACTIONS 715 [sym_kIf]; ACTIONS 717 [sym_kInherited];
   ACTIONS 689 [sym_kNil]; ACTIONS 687 [sym_kNot]; ACTIONS 711 [sym_kProcedure];
   ACTIONS 719 [sym_kRaise]; ACTIONS 721 [sym_kRepeat]; ACTIONS 723 [sym_kString];
   ACTIONS 725 [sym_kTry]; ACTIONS 727 [sym_kVar]; ACTIONS 729 [sym_kWhile];
   ACTIONS 731 [sym_kWith]].

(** State 140. *)
Definition ts_parse_table_140 : parse_row :=
  [STATE 6061 [sym_if]; STATE 6122 [sym_ifElse; sym_while; sym_repeat; sym_for; sym_foreach;
   sym_try; sym_case; sym_block; sym_asm; sym_with; sym_raise; sym_statement; sym_goto;
   sym__statement]; STATE 13608 [sym_ifTr; sym_ifElseTr; sym_whileTr; sym_repeatTr; sym_forTr;
   sym_foreachTr; sym_tryTr; sym_caseTr]; STATE 13949 [sym_blockTr]; STATE 13608 [sym_asmTr;
   sym_withTr; sym_raiseTr; sym_statementTr; sym_gotoTr; sym__statementTr];
   STATE 12950 [sym_assignment]; STATE 11871 [sym_varAssignDef]; STATE 12950 [sym_varDef;
   sym_constDef]; STATE 6126 [sym_label]; STATE 13608 [sym__statementsTr];
   STATE 13874 [sym_statementsTr]; STATE 7879 [sym__expr; sym_exprConditional];
   STATE 7259 [sym__ref; sym_lambda; sym_inherited; sym_exprDot; sym_exprDeref; sym_exprAs;
   sym_exprTpl; sym_exprSubscript; sym_exprCall]; STATE 7879 [sym_exprBinary; sym_exprUnary];
   STATE 7259 [sym_exprParens; sym_exprBrackets; sym__literal; sym_literalString];
   STATE 6541 [sym__literalString; sym_literalChar]; STATE 7259 [sym_literalNumber];
   STATE 7426 [sym__literalInt; sym__literalFloat]; STATE 1382 [sym__ppIf];
   STATE 6122 [sym__ppStatementBlock]; STATE 11556 [aux_sym_labeledStatement_repeat1];
   STATE 862 [aux_sym__statementsTr_repeat1]; STATE 6541 [aux_sym_literalString_repeat1];
   ACTIONS 671 [anon_sym_SEMI]; ACTIONS 673 [anon_sym_LBRACK]; ACTIONS 675 [anon_sym_LPAREN];
   ACTIONS 677 [aux_sym__literalString_token1]; ACTIONS 679 [anon_sym_POUND];
   ACTIONS 681 [aux_sym__literalInt_token1]; ACTIONS 683 [aux_sym__literalInt_token2;
   aux_sym__literalInt_token3]; ACTIONS 681 [aux_sym__literalFloat_token1];
   ACTIONS 411 [aux_sym_ppUsesBlock_token1]; ACTIONS 685 [sym_kAdd; sym_kSub];
   ACTIONS 687 [sym_kAt]; ACTIONS 689 [sym_kTrue; sym_kFalse]; ACTIONS 691 [sym_labelNumber];
   ACTIONS 3 [sym__space]; ACTIONS 5 [sym_ppDirective]; ACTIONS 3 [sym_comment];
   ACTIONS 689 [sym_ppFragmentExpr]; ACTIONS 671 [sym_ppFragmentStmt];
   ACTIONS 677 [sym__literalStringMultiline]; ACTIONS 693 [sym_identifier];
   ACTIONS 695 [sym_kSpecialize]; ACTIONS 697 [sym_kAsm]; ACTIONS 699 [sym_kBegin];
   ACTIONS 701 [sym_kCase]; ACTIONS 703 [sym_kConst]; ACTIONS 757 [sym_kExcept];
   ACTIONS 759 [sym_kFinally]; ACTIONS 709 [sym_kFor]; ACTIONS 711 [sym_kFunction];
   ACTIONS 713 [sym_kGoto]; ACTIONS 715 [sym_kIf]; ACTIONS 717 [sym_kInherited];
   ACTIONS 689 [sym_kNil]; ACTIONS 687 [sym_kNot]; ACTIONS 711 [sym_kProcedure];
   ACTIONS 719 [sym_kRaise]; ACTIONS 721 [sym_kRepeat]; ACTIONS 723 [sym_kString];
   ACTIONS 725 [sym_kTry]; ACTIONS 727 [sym_kVar]; ACTIONS 729 [sym_kWhile];
   ACTIONS 731 [sym_kWith]].

(** State 141. *)
Definition ts_parse_table_141 : parse_row :=
  [STATE 6061 [sym_if]; STATE 6122 [sym_ifElse; sym_while; sym_repeat; sym_for; sym_foreach;
   sym_try; sym_case; sym_block; sym_asm; sym_with; sym_raise; sym_statement; sym_goto;
   sym__statement]; STATE 13608 [sym_ifTr; sym_ifElseTr; sym_whileTr; sym_repeatTr; sym_forTr;
   sym_foreachTr; sym_tryTr; sym_caseTr]; STATE 13949 [sym_blockTr]; STATE 13608 [sym_asmTr;
   sym_withTr; sym_raiseTr; sym_statementTr; sym_gotoTr; sym__statementTr];
   STATE 12950 [sym_assignment]; STATE 11871 [sym_varAssignDef]; STATE 12950 [sym_varDef;
   sym_constDef]; STATE 6126 [sym_label]; STATE 13608 [sym__statementsTr];
   STATE 13145 [sym_statementsTr]; STATE 7879 [sym__expr; sym_exprConditional];
   STATE 7259 [sym__ref; sym_lambda; sym_inherited; sym_exprDot; sym_exprDeref; sym_exprAs;
   sym_exprTpl; sym_exprSubscript; sym_exprCall]; STATE 7879 [sym_exprBinary; sym_exprUnary];
   STATE 7259 [sym_exprParens; sym_exprBrackets; sym__literal; sym_literalString];
   STATE 6541 [sym__literalString; sym_literalChar]; STATE 7259 [sym_literalNumber];
   STATE 7426 [sym__literalInt; sym__literalFloat]; STATE 1382 [sym__ppIf];
   STATE 6122 [sym__ppStatementBlock]; STATE 11556 [aux_sym_labeledStatement_repeat1];
   STATE 862 [aux_sym__statementsTr_repeat1]; STATE 6541 [aux_sym_literalString_repeat1];
   ACTIONS 671 [anon_sym_SEMI]; ACTIONS 673 [anon_sym_LBRACK]; ACTIONS 675 [anon_sym_LPAREN];
   ACTIONS 677 [aux_sym__literalString_token1]; ACTIONS 679 [anon_sym_POUND];
   ACTIONS 681 [aux_sym__literalInt_token1]; ACTIONS 683 [aux_sym__literalInt_token2;
   aux_sym__literalInt_token3]; ACTIONS 681 [aux_sym__literalFloat_token1];
   ACTIONS 411 [aux_sym_ppUsesBlock_token1]; ACTIONS 685 [sym_kAdd; sym_kSub];
   ACTIONS 687 [sym_kAt]; ACTIONS 689 [sym_kTrue; sym_kFalse]; ACTIONS 691 [sym_labelNumber];
   ACTIONS 3 [sym__space]; ACTIONS 5 [sym_ppDirective]; ACTIONS 3 [sym_comment];
   ACTIONS 689 [sym_ppFragmentExpr]; ACTIONS 671 [sym_ppFragmentStmt];
   ACTIONS 677 [sym__literalStringMultiline]; ACTIONS 693 [sym_identifier];
   ACTIONS 695 [sym_kSpecialize]; ACTIONS 697 [sym_kAsm]; ACTIONS 699 [sym_kBegin];
   ACTIONS 701 [sym_kCase]; ACTIONS 703 [sym_kConst]; ACTIONS 761 [sym_kExcept];
   ACTIONS 763 [sym_kFinally]; ACTIONS 709 [sym_kFor]; ACTIONS 711 [sym_kFunction];
   ACTIONS 713 [sym_kGoto]; ACTIONS 715 [sym_kIf]; ACTIONS 717 [sym_kInherited];
   ACTIONS 689 [sym_kNil]; ACTIONS 687 [sym_kNot]; ACTIONS 711 [sym_kProcedure];
   ACTIONS 719 [sym_kRaise]; ACTIONS 721 [sym_kRepeat]; ACTIONS 723 [sym_kString];
   ACTIONS 725 [sym_kTry]; ACTIONS 727 [sym_kVar]; ACTIONS 729 [sym_kWhile];
   ACTIONS 731 [sym_kWith]].

(** State 142. *)
Definition ts_parse_table_142 : parse_row :=
  [STATE 6061 [sym_if]; STATE 6122 [sym_ifElse; sym_while; sym_repeat; sym_for; sym_foreach;
   sym_try; sym_case; sym_block; sym_asm; sym_with; sym_raise; sym_statement; sym_goto;
   sym__statement]; STATE 13608 [sym_ifTr; sym_ifElseTr; sym_whileTr; sym_repeatTr; sym_forTr;
   sym_foreachTr; sym_tryTr; sym_caseTr]; STATE 13949 [sym_blockTr]; STATE 13608 [sym_asmTr;
   sym_withTr; sym_raiseTr; sym_statementTr; sym_gotoTr; sym__statementTr];
   STATE 12950 [sym_assignment]; STATE 11871 [sym_varAssignDef]; STATE 12950 [sym_varDef;
   sym_constDef]; STATE 6126 [sym_label]; STATE 13608 [sym__statementsTr];
   STATE 13109 [sym_statementsTr]; STATE 7879 [sym__expr; sym_exprConditional];
   STATE 7259 [sym__ref; sym_lambda; sym_inherited; sym_exprDot; sym_exprDeref; sym_exprAs;
   sym_exprTpl; sym_exprSubscript; sym_exprCall]; STATE 7879 [sym_exprBinary; sym_exprUnary];
   STATE 7259 [sym_exprParens; sym_exprBrackets; sym__literal; sym_literalString];
   STATE 6541 [sym__literalString; sym_literalChar]; STATE 7259 [sym_literalNumber];
   STATE 7426 [sym__literalInt; sym__literalFloat]; STATE 1382 [sym__ppIf];
   STATE 6122 [sym__ppStatementBlock]; STATE 11556 [aux_sym_labeledStatement_repeat1];
   STATE 862 [aux_sym__statementsTr_repeat1]; STATE 6541 [aux_sym_literalString_repeat1];
   ACTIONS 671 [anon_sym_SEMI]; ACTIONS 673 [anon_sym_LBRACK]; ACTIONS 675 [anon_sym_LPAREN];
   ACTIONS 677 [aux_sym__literalString_token1]; ACTIONS 679 [anon_sym_POUND];
   ACTIONS 681 [aux_sym__literalInt_token1]; ACTIONS 683 [aux_sym__literalInt_token2;
   aux_sym__literalInt_token3]; ACTIONS 681 [aux_sym__literalFloat_token1];
   ACTIONS 411 [aux_sym_ppUsesBlock_token1]; ACTIONS 685 [sym_kAdd; sym_kSub];
   ACTIONS 687 [sym_kAt]; ACTIONS 689 [sym_kTrue; sym_kFalse]; ACTIONS 691 [sym_labelNumber];
   ACTIONS 3 [sym__space]; ACTIONS 5 [sym_ppDirective]; ACTIONS 3 [sym_comment];
   ACTIONS 689 [sym_ppFragmentExpr]; ACTIONS 671 [sym_ppFragmentStmt];
   ACTIONS 677 [sym__literalStringMultiline]; ACTIONS 693 [sym_identifier];
   ACTIONS 695 [sym_kSpecialize]; ACTIONS 697 [sym_kAsm]; ACTIONS 699 [sym_kBegin];
   ACTIONS 701 [sym_kCase]; ACTIONS 703 [sym_kConst]; ACTIONS 765 [sym_kExcept];
   ACTIONS 767 [sym_kFinally]; ACTIONS 709 [sym_kFor]; ACTIONS 711 [sym_kFunction];
   ACTIONS 713 [sym_kGoto]; ACTIONS 715 [sym_kIf]; ACTIONS 717 [sym_kInherited];
   ACTIONS 689 [sym_kNil]; ACTIONS 687 [sym_kNot]; ACTIONS 711 [sym_kProcedure];
   ACTIONS 719 [sym_kRaise]; ACTIONS 721 [sym_kRepeat]; ACTIONS 723 [sym_kString];
   ACTIONS 725 [sym_kTry]; ACTIONS 727 [sym_kVar]; ACTIONS 729 [sym_kWhile];
   ACTIONS 731 [sym_kWith]].

(** State 143. *)
Definition ts_parse_table_143 : parse_row :=
  [STATE 6061 [sym_if]; STATE 6122 [sym_ifElse; sym_while; sym_repeat; sym_for; sym_foreach;
   sym_try; sym_case; sym_block; sym_asm; sym_with; sym_raise; sym_statement; sym_goto;
   sym__statement]; STATE 13608 [sym_ifTr; sym_ifElseTr; sym_whileTr; sym_repeatTr; sym_forTr;
   sym_foreachTr; sym_tryTr; sym_caseTr]; STATE 13949 [sym_blockTr]; STATE 13608 [sym_asmTr;
   sym_withTr; sym_raiseTr; sym_statementTr; sym_gotoTr; sym__statementTr];
   STATE 12950 [sym_assignment]; STATE 11871 [sym_varAssignDef]; STATE 12950 [sym_varDef;
   sym_constDef]; STATE 6126 [sym_label]; STATE 13608 [sym__statementsTr];
   STATE 13478 [sym_statementsTr]; STATE 7879 [sym__expr; sym_exprConditional];
   STATE 7259 [sym__ref; sym_lambda; sym_inherited; sym_exprDot; sym_exprDeref; sym_exprAs;
   sym_exprTpl; sym_exprSubscript; sym_exprCall]; STATE 7879 [sym_exprBinary; sym_exprUnary];
   STATE 7259 [sym_exprParens; sym_exprBrackets; sym__literal; sym_literalString];
   STATE 6541 [sym__literalString; sym_literalChar]; STATE 7259 [sym_literalNumber];
   STATE 7426 [sym__literalInt; sym__literalFloat]; STATE 1382 [sym__ppIf];
   STATE 6122 [sym__ppStatementBlock]; STATE 11556 [aux_sym_labeledStatement_repeat1];
   STATE 862 [aux_sym__statementsTr_repeat1]; STATE 6541 [aux_sym_literalString_repeat1];
   ACTIONS 671 [anon_sym_SEMI]; ACTIONS 673 [anon_sym_LBRACK]; ACTIONS 675 [anon_sym_LPAREN];
   ACTIONS 677 [aux_sym__literalString_token1]; ACTIONS 679 [anon_sym_POUND];
   ACTIONS 681 [aux_sym__literalInt_token1]; ACTIONS 683 [aux_sym__literalInt_token2;
   aux_sym__literalInt_token3]; ACTIONS 681 [aux_sym__literalFloat_token1];
   ACTIONS 411 [aux_sym_ppUsesBlock_token1]; ACTIONS 685 [sym_kAdd; sym_kSub];
   ACTIONS 687 [sym_kAt]; ACTIONS 689 [sym_kTrue; sym_kFalse]; ACTIONS 691 [sym_labelNumber];
   ACTIONS 3 [sym__space]; ACTIONS 5 [sym_ppDirective]; ACTIONS 3 [sym_comment];
   ACTIONS 689 [sym_ppFragmentExpr]; ACTIONS 671 [sym_ppFragmentStmt];
   ACTIONS 677 [sym__literalStringMultiline]; ACTIONS 693 [sym_identifier];
   ACTIONS 695 [sym_kSpecialize]; ACTIONS 697 [sym_kAsm]; ACTIONS 699 [sym_kBegin];
   ACTIONS 701 [sym_kCase]; ACTIONS 703 [sym_kConst]; ACTIONS 769 [sym_kExcept];
   ACTIONS 771 [sym_kFinally]; ACTIONS 709 [sym_kFor]; ACTIONS 711 [sym_kFunction];
   ACTIONS 713 [sym_kGoto]; ACTIONS 715 [sym_kIf]; ACTIONS 717 [sym_kInherited];
   ACTIONS 689 [sym_kNil]; ACTIONS 687 [sym_kNot]; ACTIONS 711 [sym_kProcedure];
   ACTIONS 719 [sym_kRaise]; ACTIONS 721 [sym_kRepeat]; ACTIONS 723 [sym_kString];
   ACTIONS 725 [sym_kTry]; ACTIONS 727 [sym_kVar]; ACTIONS 729 [sym_kWhile];
   ACTIONS 731 [sym_kWith]].

(** State 144. *)
Definition ts_parse_table_144 : parse_row :=
  [STATE 6061 [sym_if]; STATE 6122 [sym_ifElse; sym_while; sym_repeat; sym_for; sym_foreach;
   sym_try; sym_case; sym_block; sym_asm; sym_with; sym_raise; sym_statement; sym_goto;
   sym__statement]; STATE 13608 [sym_ifTr; sym_ifElseTr; sym_whileTr; sym_repeatTr; sym_forTr;
   sym_foreachTr; sym_tryTr; sym_caseTr]; STATE 13949 [sym_blockTr]; STATE 13608 [sym_asmTr;
   sym_withTr; sym_raiseTr; sym_statementTr; sym_gotoTr; sym__statementTr];
   STATE 12950 [sym_assignment]; STATE 11871 [sym_varAssignDef]; STATE 12950 [sym_varDef;
   sym_constDef]; STATE 6126 [sym_label]; STATE 13608 [sym__statementsTr];
   STATE 13215 [sym_statementsTr]; STATE 7879 [sym__expr; sym_exprConditional];
   STATE 7259 [sym__ref; sym_lambda; sym_inherited; sym_exprDot; sym_exprDeref; sym_exprAs;
   sym_exprTpl; sym_exprSubscript; sym_exprCall]; STATE 7879 [sym_exprBinary; sym_exprUnary];
   STATE 7259 [sym_exprParens; sym_exprBrackets; sym__literal; sym_literalString];
   STATE 6541 [sym__literalString; sym_literalChar]; STATE 7259 [sym_literalNumber];
   STATE 7426 [sym__literalInt; sym__literalFloat]; STATE 1382 [sym__ppIf];
   STATE 6122 [sym__ppStatementBlock]; STATE 11556 [aux_sym_labeledStatement_repeat1];
   STATE 862 [aux_sym__statementsTr_repeat1]; STATE 6541 [aux_sym_literalString_repeat1];
   ACTIONS 671 [anon_sym_SEMI]; ACTIONS 673 [anon_sym_LBRACK]; ACTIONS 675 [anon_sym_LPAREN];
   ACTIONS 677 [aux_sym__literalString_token1]; ACTIONS 679 [anon_sym_POUND];
   ACTIONS 681 [aux_sym__literalInt_token1]; ACTIONS 683 [aux_sym__literalInt_token2;
   aux_sym__literalInt_token3]; ACTIONS 681 [aux_sym__literalFloat_token1];
   ACTIONS 411 [aux_sym_ppUsesBlock_token1]; ACTIONS 685 [sym_kAdd; sym_kSub];
   ACTIONS 687 [sym_kAt]; ACTIONS 689 [sym_kTrue; sym_kFalse]; ACTIONS 691 [sym_labelNumber];
   ACTIONS 3 [sym__space]; ACTIONS 5 [sym_ppDirective]; ACTIONS 3 [sym_comment];
   ACTIONS 689 [sym_ppFragmentExpr]; ACTIONS 671 [sym_ppFragmentStmt];
   ACTIONS 677 [sym__literalStringMultiline]; ACTIONS 693 [sym_identifier];
   ACTIONS 695 [sym_kSpecialize]; ACTIONS 697 [sym_kAsm]; ACTIONS 699 [sym_kBegin];
   ACTIONS 701 [sym_kCase]; ACTIONS 703 [sym_kConst]; ACTIONS 773 [sym_kExcept];
   ACTIONS 775 [sym_kFinally]; ACTIONS 709 [sym_kFor]; ACTIONS 711 [sym_kFunction];
   ACTIONS 713 [sym_kGoto]; ACTIONS 715 [sym_kIf]; ACTIONS 717 [sym_kInherited];
   ACTIONS 689 [sym_kNil]; ACTIONS 687 [sym_kNot]; ACTIONS 711 [sym_kProcedure];
   ACTIONS 719 [sym_kRaise]; ACTIONS 721 [sym_kRepeat]; ACTIONS 723 [sym_kString];
   ACTIONS 725 [sym_kTry]; ACTIONS 727 [sym_kVar]; ACTIONS 729 [sym_kWhile];
   ACTIONS 731 [sym_kWith]].

(** State 145. *)
Definition ts_parse_table_145 : parse_row :=
  [STATE 6061 [sym_if]; STATE 6122 [sym_ifElse; sym_while; sym_repeat; sym_for; sym_foreach;
   sym_try; sym_case; sym_block; sym_asm; sym_with; sym_raise; sym_statement; sym_goto;
   sym__statement]; STATE 13608 [sym_ifTr; sym_ifElseTr; sym_whileTr; sym_repeatTr; sym_forTr;
   sym_foreachTr; sym_tryTr; sym_caseTr]; STATE 13949 [sym_blockTr]; STATE 13608 [sym_asmTr;
   sym_withTr; sym_raiseTr; sym_statementTr; sym_gotoTr; sym__statementTr];
   STATE 12950 [sym_assignment]; STATE 11871 [sym_varAssignDef]; STATE 12950 [sym_varDef;
   sym_constDef]; STATE 6126 [sym_label]; STATE 13608 [sym__statementsTr];
   STATE 13763 [sym_statementsTr]; STATE 7879 [sym__expr; sym_exprConditional];
   STATE 7259 [sym__ref; sym_lambda; sym_inherited; sym_exprDot; sym_exprDeref; sym_exprAs;
   sym_exprTpl; sym_exprSubscript; sym_exprCall]; STATE 7879 [sym_exprBinary; sym_exprUnary];
   STATE 7259 [sym_exprParens; sym_exprBrackets; sym__literal; sym_literalString];
   STATE 6541 [sym__literalString; sym_literalChar]; STATE 7259 [sym_literalNumber];
   STATE 7426 [sym__literalInt; sym__literalFloat]; STATE 1382 [sym__ppIf];
   STATE 6122 [sym__ppStatementBlock]; STATE 11556 [aux_sym_labeledStatement_repeat1];
   STATE 862 [aux_sym__statementsTr_repeat1]; STATE 6541 [aux_sym_literalString_repeat1];
   ACTIONS 671 [anon_sym_SEMI]; ACTIONS 673 [anon_sym_LBRACK]; ACTIONS 675 [anon_sym_LPAREN];
   ACTIONS 677 [aux_sym__literalString_token1]; ACTIONS 679 [anon_sym_POUND];
   ACTIONS 681 [aux_sym__literalInt_token1]; ACTIONS 683 [aux_sym__literalInt_token2;
   aux_sym__literalInt_token3]; ACTIONS 681 [aux_sym__literalFloat_token1];
   ACTIONS 411 [aux_sym_ppUsesBlock_token1]; ACTIONS 685 [sym_kAdd; sym_kSub];
   ACTIONS 687 [sym_kAt]; ACTIONS 689 [sym_kTrue; sym_kFalse]; ACTIONS 691 [sym_labelNumber];
   ACTIONS 3 [sym__space]; ACTIONS 5 [sym_ppDirective]; ACTIONS 3 [sym_comment];
   ACTIONS 689 [sym_ppFragmentExpr]; ACTIONS 671 [sym_ppFragmentStmt];
   ACTIONS 677 [sym__literalStringMultiline]; ACTIONS 693 [sym_identifier];
   ACTIONS 695 [sym_kSpecialize]; ACTIONS 697 [sym_kAsm]; ACTIONS 699 [sym_kBegin];
   ACTIONS 701 [sym_kCase]; ACTIONS 703 [sym_kConst]; ACTIONS 777 [sym_kExcept];
   ACTIONS 779 [sym_kFinally]; ACTIONS 709 [sym_kFor]; ACTIONS 711 [sym_kFunction];
   ACTIONS 713 [sym_kGoto]; ACTIONS 715 [sym_kIf]; ACTIONS 717 [sym_kInherited];
   ACTIONS 689 [sym_kNil]; ACTIONS 687 [sym_kNot]; ACTIONS 711 [sym_kProcedure];
   ACTIONS 719 [sym_kRaise]; ACTIONS 721 [sym_kRepeat]; ACTIONS 723 [sym_kString];
   ACTIONS 725 [sym_kTry]; ACTIONS 727 [sym_kVar]; ACTIONS 729 [sym_kWhile];
   ACTIONS 731 [sym_kWith]].

(** State 146. *)
Definition ts_parse_table_146 : parse_row :=
  [STATE 12283 [sym_genericDot; sym_genericTpl; sym__genericName]; STATE 17 [sym__ppIf];
   STATE 163 [sym_ppBlock; sym_declType]; STATE 12022 [sym_rttiAttributes];
   STATE 163 [aux_sym_declTypes_repeat1]; STATE 12404 [aux_sym_rttiAttributes_repeat2];
   ACTIONS 781 [anon_sym_SEMI; anon_sym_COMMA]; ACTIONS 783 [anon_sym_LBRACK];
   ACTIONS 786 [anon_sym_LPAREN]; ACTIONS 781 [aux_sym__literalString_token1; anon_sym_POUND];
   ACTIONS 786 [aux_sym__literalInt_token1]; ACTIONS 781 [aux_sym__literalInt_token2;
   aux_sym__literalInt_token3]; ACTIONS 786 [aux_sym__literalFloat_token1];
   ACTIONS 788 [aux_sym_ppUsesBlock_token1]; ACTIONS 781 [aux_sym_ppUsesBlock_token2;
   aux_sym_ppUsesBlock_token3]; ACTIONS 786 [sym_kAdd; sym_kSub]; ACTIONS 781 [sym_kAt;
   sym_kTrue; sym_kFalse]; ACTIONS 3 [sym__space]; ACTIONS 5 [sym_ppDirective];
   ACTIONS 3 [sym_comment]; ACTIONS 781 [sym_ppFragmentExpr; sym__literalStringMultiline];
   ACTIONS 791 [sym_identifier]; ACTIONS 781 [sym_kDefault; sym_kNodefault; sym_kDispId];
   ACTIONS 794 [sym_kGeneric]; ACTIONS 781 [sym_kSpecialize; sym_kOperator; sym_kPublic;
   sym_kStatic; sym_kVirtual; sym_kAbstract; sym_kDynamic; sym_kOverride; sym_kOverload;
   sym_kReintroduce; sym_kStdcall; sym_kCdecl; sym_kCppdecl; sym_kPascal; sym_kRegister;
   sym_kMwpascal; sym_kMessage; sym_kDeprecated; sym_kExperimental; sym_kPlatform;
   sym_kUnimplemented; sym_kCvar; sym_kExport; sym_kFar; sym_kNear; sym_kSafecall;
   sym_kAssembler; sym_kNostackframe; sym_kInterrupt; sym_kNoreturn; sym_kIocheck; sym_kLocal;
   sym_kHardfloat; sym_kSoftfloat; sym_kMs_abi_default; sym_kMs_abi_cdecl; sym_kSaveregisters;
   sym_kSysv_abi_default; sym_kSysv_abi_cdecl; sym_kVectorcall; sym_kVarargs; sym_kWinapi;
   sym_kAlias; sym_kAsm; sym_kBegin; sym_kCase; sym_kClass; sym_kConst; sym_kConstructor;
   sym_kDestructor; sym_kExports; sym_kFor; sym_kFunction; sym_kGoto; sym_kIf; sym_kInherited;
   sym_kLabel; sym_kNil; sym_kNot; sym_kProcedure; sym_kProperty; sym_kRaise; sym_kRepeat;
   sym_kResourcestring; sym_kString; sym_kThreadvar; sym_kTry; sym_kType; sym_kUses; sym_kVar;
   sym_kWhile; sym_kWith]].

(** State 147. *)
Definition ts_parse_table_147 : parse_row :=
  [STATE 6061 [sym_if]; STATE 6122 [sym_ifElse; sym_while; sym_repeat; sym_for; sym_foreach;
   sym_try; sym_case; sym_block; sym_asm; sym_with; sym_raise; sym_statement; sym_goto;
   sym__statement]; STATE 13608 [sym_ifTr; sym_ifElseTr; sym_whileTr; sym_repeatTr; sym_forTr;
   sym_foreachTr; sym_tryTr; sym_caseTr]; STATE 13949 [sym_blockTr]; STATE 13608 [sym_asmTr;
   sym_withTr; sym_raiseTr; sym_statementTr; sym_gotoTr; sym__statementTr];
   STATE 12950 [sym_assignment]; STATE 11871 [sym_varAssignDef]; STATE 12950 [sym_varDef;
   sym_constDef]; STATE 6126 [sym_label]; STATE 13608 [sym__statementsTr];
   STATE 13247 [sym_statementsTr]; STATE 7879 [sym__expr; sym_exprConditional];
   STATE 7259 [sym__ref; sym_lambda; sym_inherited; sym_exprDot; sym_exprDeref; sym_exprAs;
   sym_exprTpl; sym_exprSubscript; sym_exprCall]; STATE 7879 [sym_exprBinary; sym_exprUnary];
   STATE 7259 [sym_exprParens; sym_exprBrackets; sym__literal; sym_literalString];
   STATE 6541 [sym__literalString; sym_literalChar]; STATE 7259 [sym_literalNumber];
   STATE 7426 [sym__literalInt; sym__literalFloat]; STATE 1382 [sym__ppIf];
   STATE 6122 [sym__ppStatementBlock]; STATE 11556 [aux_sym_labeledStatement_repeat1];
   STATE 862 [aux_sym__statementsTr_repeat1]; STATE 6541 [aux_sym_literalString_repeat1];
   ACTIONS 671 [anon_sym_SEMI]; ACTIONS 673 [anon_sym_LBRACK]; ACTIONS 675 [anon_sym_LPAREN];
   ACTIONS 677 [aux_sym__literalString_token1]; ACTIONS 679 [anon_sym_POUND];
   ACTIONS 681 [aux_sym__literalInt_token1]; ACTIONS 683 [aux_sym__literalInt_token2;
   aux_sym__literalInt_token3]; ACTIONS 681 [aux_sym__literalFloat_token1];
   ACTIONS 411 [aux_sym_ppUsesBlock_token1]; ACTIONS 685 [sym_kAdd; sym_kSub];
   ACTIONS 687 [sym_kAt]; ACTIONS 689 [sym_kTrue; sym_kFalse]; ACTIONS 691 [sym_labelNumber];
   ACTIONS 3 [sym__space]; ACTIONS 5 [sym_ppDirective]; ACTIONS 3 [sym_comment];
   ACTIONS 689 [sym_ppFragmentExpr]; ACTIONS 671 [sym_ppFragmentStmt];
   ACTIONS 677 [sym__literalStringMultiline]; ACTIONS 693 [sym_identifier];
   ACTIONS 695 [sym_kSpecialize]; ACTIONS 697 [sym_kAsm]; ACTIONS 699 [sym_kBegin];
   ACTIONS 701 [sym_kCase]; ACTIONS 703 [sym_kConst]; ACTIONS 797 [sym_kExcept];
   ACTIONS 799 [sym_kFinally]; ACTIONS 709 [sym_kFor]; ACTIONS 711 [sym_kFunction];
   ACTIONS 713 [sym_kGoto]; ACTIONS 715 [sym_kIf]; ACTIONS 717 [sym_kInherited];
   ACTIONS 689 [sym_kNil]; ACTIONS 687 [sym_kNot]; ACTIONS 711 [sym_kProcedure];
   ACTIONS 719 [sym_kRaise]; ACTIONS 721 [sym_kRepeat]; ACTIONS 723 [sym_kString];
   ACTIONS 725 [sym_kTry]; ACTIONS 727 [sym_kVar]; ACTIONS 729 [sym_kWhile];
   ACTIONS 731 [sym_kWith]].

Definition ts_parse_table_part1 : list parse_row :=
  [
   ts_parse_table_0; ts_parse_table_1; ts_parse_table_2; ts_parse_table_3; ts_parse_table_4;
   ts_parse_table_5; ts_parse_table_6; ts_parse_table_7; ts_parse_table_8; ts_parse_table_9;
   ts_parse_table_10; ts_parse_table_11; ts_parse_table_12; ts_parse_table_13;
   ts_parse_table_14; ts_parse_table_15; ts_parse_table_16; ts_parse_table_17;
   ts_parse_table_18; ts_parse_table_19; ts_parse_table_20; ts_parse_table_21;
   ts_parse_table_22; ts_parse_table_23; ts_parse_table_24; ts_parse_table_25;
   ts_parse_table_26; ts_parse_table_27; ts_parse_table_28; ts_parse_table_29;
   ts_parse_table_30; ts_parse_table_31; ts_parse_table_32; ts_parse_table_33;
   ts_parse_table_34; ts_parse_table_35; ts_parse_table_36; ts_parse_table_37;
   ts_parse_table_38; ts_parse_table_39; ts_parse_table_40; ts_parse_table_41;
   ts_parse_table_42; ts_parse_table_43; ts_parse_table_44; ts_parse_table_45;
   ts_parse_table_46; ts_parse_table_47; ts_parse_table_48; ts_parse_table_49;
   ts_parse_table_50; ts_parse_table_51; ts_parse_table_52; ts_parse_table_53;
   ts_parse_table_54; ts_parse_table_55; ts_parse_table_56; ts_parse_table_57;
   ts_parse_table_58; ts_parse_table_59; ts_parse_table_60; ts_parse_table_61;
   ts_parse_table_62; ts_parse_table_63; ts_parse_table_64; ts_parse_table_65;
   ts_parse_table_66; ts_parse_table_67; ts_parse_table_68; ts_parse_table_69;
   ts_parse_table_70; ts_parse_table_71; ts_parse_table_72; ts_parse_table_73;
   ts_parse_table_74; ts_parse_table_75; ts_parse_table_76; ts_parse_table_77;
   ts_parse_table_78; ts_parse_table_79; ts_parse_table_80; ts_parse_table_81;
   ts_parse_table_82; ts_parse_table_83; ts_parse_table_84; ts_parse_table_85;
   ts_parse_table_86; ts_parse_table_87; ts_parse_table_88; ts_parse_table_89;
   ts_parse_table_90; ts_parse_table_91; ts_parse_table_92; ts_parse_table_93;
   ts_parse_table_94; ts_parse_table_95; ts_parse_table_96; ts_parse_table_97;
   ts_parse_table_98; ts_parse_table_99; ts_parse_table_100; ts_parse_table_101;
   ts_parse_table_102; ts_parse_table_103; ts_parse_table_104; ts_parse_table_105;
   ts_parse_table_106; ts_parse_table_107; ts_parse_table_108; ts_parse_table_109;
   ts_parse_table_110; ts_parse_table_111; ts_parse_table_112; ts_parse_table_113;
   ts_parse_table_114; ts_parse_table_115; ts_parse_table_116; ts_parse_table_117;
   ts_parse_table_118; ts_parse_table_119; ts_parse_table_120; ts_parse_table_121;
   ts_parse_table_122; ts_parse_table_123; ts_parse_table_124; ts_parse_table_125;
   ts_parse_table_126; ts_parse_table_127; ts_parse_table_128; ts_parse_table_129;
   ts_parse_table_130; ts_parse_table_131; ts_parse_table_132; ts_parse_table_133;
   ts_parse_table_134; ts_parse_table_135; ts_parse_table_136; ts_parse_table_137;
   ts_parse_table_138; ts_parse_table_139; ts_parse_table_140; ts_parse_table_141;
   ts_parse_table_142; ts_parse_table_143; ts_parse_table_144; ts_parse_table_145;
   ts_parse_table_146; ts_parse_table_147
  ].
