(* ===== verification/ParseTable2.v ===== *)
(** * The parse table of [parser.c], states 148 to 330

    One definition for each row of [ts_parse_table], with the initializers of
    the row in the order of the source; consecutive initializers of the same
    value are one group. *)

From S2P Require Import Prelude.
From S2P Require Import Symbols.
From S2P Require Import ParseTypes.

(** State 148. *)
Definition ts_parse_table_148 : parse_row :=
  [STATE 6061 [sym_if]; STATE 6122 [sym_ifElse; sym_while; sym_repeat; sym_for; sym_foreach;
   sym_try; sym_case; sym_block; sym_asm; sym_with; sym_raise; sym_statement; sym_goto;
   sym__statement]; STATE 13608 [sym_ifTr; sym_ifElseTr; sym_whileTr; sym_repeatTr; sym_forTr;
   sym_foreachTr; sym_tryTr; sym_caseTr]; STATE 13949 [sym_blockTr]; STATE 13608 [sym_asmTr;
   sym_withTr; sym_raiseTr; sym_statementTr; sym_gotoTr; sym__statementTr];
   STATE 12950 [sym_assignment]; STATE 11871 [sym_varAssignDef]; STATE 12950 [sym_varDef;
   sym_constDef]; STATE 6126 [sym_label]; STATE 13608 [sym__statementsTr];
   STATE 13273 [sym_statementsTr]; STATE 7879 [sym__expr; sym_exprConditional];
   STATE 7259 [sym__ref; sym_lambda; sym_inherited; sym_exprDot; sym_exprDeref; sym_exprAs;
   sym_exprTpl; sym_exprSubscript; sym_exprCall]; STATE 7879 [sym_exprBinary; sym_exprUnary];
   STATE 7259 [sym_exprParens; sym_exprBrackets; sym__literal; sym_literalString];
   STATE 6541 [sym__literalString; sym_literalChar]; STATE 7259 [sym_literalNumber];
   STATE 7426 [sym__literalInt; sym__literalFloat]; STATE 1382 [sym__ppIf];
   STATE 6122 [sym__ppStatementBlock]; STATE 11556 [aux_sym_labeledStatement_repeat1];
   STATE 862 [aux_sym__statementsTr_repeat1]; STATE 6541 [aux_sym_literalString_repeat1];
   ACTIONS 671 [anon_sym_SEMI]; ACTIONS 673 [anon_sym_LBRACK]; ACTIONS 675 [anon_sym_LPAREN];
   ACTIONS 677 [aux_sym__literalString_token1]; ACTIONS 679 [anon_sym_POUND];
   ACTIONS 681 [aux_sym__literalInt_token1]; ACTIONS 683 [aux_sym__literalInt_token2;
   aux_sym__literalInt_token3]; ACTIONS 681 [aux_sym__literalFloat_token1];
   ACTIONS 411 [aux_sym_ppUsesBlock_token1]; ACTIONS 685 [sym_kAdd; sym_kSub];
   ACTIONS 687 [sym_kAt]; ACTIONS 689 [sym_kTrue; sym_kFalse]; ACTIONS 691 [sym_labelNumber];
   ACTIONS 3 [sym__space]; ACTIONS 5 [sym_ppDirective]; ACTIONS 3 [sym_comment];
   ACTIONS 689 [sym_ppFragmentExpr]; ACTIONS 671 [sym_ppFragmentStmt];
   ACTIONS 677 [sym__literalStringMultiline]; ACTIONS 693 [sym_identifier];
   ACTIONS 695 [sym_kSpecialize]; ACTIONS 697 [sym_kAsm]; ACTIONS 699 [sym_kBegin];
   ACTIONS 701 [sym_kCase]; ACTIONS 703 [sym_kConst]; ACTIONS 801 [sym_kExcept];
   ACTIONS 803 [sym_kFinally]; ACTIONS 709 [sym_kFor]; ACTIONS 711 [sym_kFunction];
   ACTIONS 713 [sym_kGoto]; ACTIONS 715 [sym_kIf]; ACTIONS 717 [sym_kInherited];
   ACTIONS 689 [sym_kNil]; ACTIONS 687 [sym_kNot]; ACTIONS 711 [sym_kProcedure];
   ACTIONS 719 [sym_kRaise]; ACTIONS 721 [sym_kRepeat]; ACTIONS 723 [sym_kString];
   ACTIONS 725 [sym_kTry]; ACTIONS 727 [sym_kVar]; ACTIONS 729 [sym_kWhile];
   ACTIONS 731 [sym_kWith]].

(** State 149. *)
Definition ts_parse_table_149 : parse_row :=
  [STATE 6061 [sym_if]; STATE 6122 [sym_ifElse; sym_while; sym_repeat; sym_for; sym_foreach;
   sym_try; sym_case; sym_block; sym_asm; sym_with; sym_raise; sym_statement; sym_goto;
   sym__statement]; STATE 13608 [sym_ifTr; sym_ifElseTr; sym_whileTr; sym_repeatTr; sym_forTr;
   sym_foreachTr; sym_tryTr; sym_caseTr]; STATE 13949 [sym_blockTr]; STATE 13608 [sym_asmTr;
   sym_withTr; sym_raiseTr; sym_statementTr; sym_gotoTr; sym__statementTr];
   STATE 12950 [sym_assignment]; STATE 11871 [sym_varAssignDef]; STATE 12950 [sym_varDef;
   sym_constDef]; STATE 6126 [sym_label]; STATE 13608 [sym__statementsTr];
   STATE 13298 [sym_statementsTr]; STATE 7879 [sym__expr; sym_exprConditional];
   STATE 7259 [sym__ref; sym_lambda; sym_inherited; sym_exprDot; sym_exprDeref; sym_exprAs;
   sym_exprTpl; sym_exprSubscript; sym_exprCall]; STATE 7879 [sym_exprBinary; sym_exprUnary];
   STATE 7259 [sym_exprParens; sym_exprBrackets; sym__literal; sym_literalString];
   STATE 6541 [sym__literalString; sym_literalChar]; STATE 7259 [sym_literalNumber];
   STATE 7426 [sym__literalInt; sym__literalFloat]; STATE 1382 [sym__ppIf];
   STATE 6122 [sym__ppStatementBlock]; STATE 11556 [aux_sym_labeledStatement_repeat1];
   STATE 862 [aux_sym__statementsTr_repeat1]; STATE 6541 [aux_sym_literalString_repeat1];
   ACTIONS 671 [anon_sym_SEMI]; ACTIONS 673 [anon_sym_LBRACK]; ACTIONS 675 [anon_sym_LPAREN];
   ACTIONS 677 [aux_sym__literalString_token1]; ACTIONS 679 [anon_sym_POUND];
   ACTIONS 681 [aux_sym__literalInt_token1]; ACTIONS 683 [aux_sym__literalInt_token2;
   aux_sym__literalInt_token3]; ACTIONS 681 [aux_sym__literalFloat_token1];
   ACTIONS 411 [aux_sym_ppUsesBlock_token1]; ACTIONS 685 [sym_kAdd; sym_kSub];
   ACTIONS 687 [sym_kAt]; ACTIONS 689 [sym_kTrue; sym_kFalse]; ACTIONS 691 [sym_labelNumber];
   ACTIONS 3 [sym__space]; ACTIONS 5 [sym_ppDirective]; ACTIONS 3 [sym_comment];
   ACTIONS 689 [sym_ppFragmentExpr]; ACTIONS 671 [sym_ppFragmentStmt];
   ACTIONS 677 [sym__literalStringMultiline]; ACTIONS 693 [sym_identifier];
   ACTIONS 695 [sym_kSpecialize]; ACTIONS 697 [sym_kAsm]; ACTIONS 699 [sym_kBegin];
   ACTIONS 701 [sym_kCase]; ACTIONS 703 [sym_kConst]; ACTIONS 805 [sym_kExcept];
   ACTIONS 807 [sym_kFinally]; ACTIONS 709 [sym_kFor]; ACTIONS 711 [sym_kFunction];
   ACTIONS 713 [sym_kGoto]; ACTIONS 715 [sym_kIf]; ACTIONS 717 [sym_kInherited];
   ACTIONS 689 [sym_kNil]; ACTIONS 687 [sym_kNot]; ACTIONS 711 [sym_kProcedure];
   ACTIONS 719 [sym_kRaise]; ACTIONS 721 [sym_kRepeat]; ACTIONS 723 [sym_kString];
   ACTIONS 725 [sym_kTry]; ACTIONS 727 [sym_kVar]; ACTIONS 729 [sym_kWhile];
   ACTIONS 731 [sym_kWith]].

(** State 150. *)
Definition ts_parse_table_150 : parse_row :=
  [STATE 6061 [sym_if]; STATE 6122 [sym_ifElse; sym_while; sym_repeat; sym_for; sym_foreach;
   sym_try; sym_case; sym_block; sym_asm; sym_with; sym_raise; sym_statement; sym_goto;
   sym__statement]; STATE 13608 [sym_ifTr; sym_ifElseTr; sym_whileTr; sym_repeatTr; sym_forTr;
   sym_foreachTr; sym_tryTr; sym_caseTr]; STATE 13949 [sym_blockTr]; STATE 13608 [sym_asmTr;
   sym_withTr; sym_raiseTr; sym_statementTr; sym_gotoTr; sym__statementTr];
   STATE 12950 [sym_assignment]; STATE 11871 [sym_varAssignDef]; STATE 12950 [sym_varDef;
   sym_constDef]; STATE 6126 [sym_label]; STATE 13608 [sym__statementsTr];
   STATE 13319 [sym_statementsTr]; STATE 7879 [sym__expr; sym_exprConditional];
   STATE 7259 [sym__ref; sym_lambda; sym_inherited; sym_exprDot; sym_exprDeref; sym_exprAs;
   sym_exprTpl; sym_exprSubscript; sym_exprCall]; STATE 7879 [sym_exprBinary; sym_exprUnary];
   STATE 7259 [sym_exprParens; sym_exprBrackets; sym__literal; sym_literalString];
   STATE 6541 [sym__literalString; sym_literalChar]; STATE 7259 [sym_literalNumber];
   STATE 7426 [sym__literalInt; sym__literalFloat]; STATE 1382 [sym__ppIf];
   STATE 6122 [sym__ppStatementBlock]; STATE 11556 [aux_sym_labeledStatement_repeat1];
   STATE 862 [aux_sym__statementsTr_repeat1]; STATE 6541 [aux_sym_literalString_repeat1];
   ACTIONS 671 [anon_sym_SEMI]; ACTIONS 673 [anon_sym_LBRACK]; ACTIONS 675 [anon_sym_LPAREN];
   ACTIONS 677 [aux_sym__literalString_token1]; ACTIONS 679 [anon_sym_POUND];
   ACTIONS 681 [aux_sym__literalInt_token1]; ACTIONS 683 [aux_sym__literalInt_token2;
   aux_sym__literalInt_token3]; ACTIONS 681 [aux_sym__literalFloat_token1];
   ACTIONS 411 [aux_sym_ppUsesBlock_token1]; ACTIONS 685 [sym_kAdd; sym_kSub];
   ACTIONS 687 [sym_kAt]; ACTIONS 689 [sym_kTrue; sym_kFalse]; ACTIONS 691 [sym_labelNumber];
   ACTIONS 3 [sym__space]; ACTIONS 5 [sym_ppDirective]; ACTIONS 3 [sym_comment];
   ACTIONS 689 [sym_ppFragmentExpr]; ACTIONS 671 [sym_ppFragmentStmt];
   ACTIONS 677 [sym__literalStringMultiline]; ACTIONS 693 [sym_identifier];
   ACTIONS 695 [sym_kSpecialize]; ACTIONS 697 [sym_kAsm]; ACTIONS 699 [sym_kBegin];
   ACTIONS 701 [sym_kCase]; ACTIONS 703 [sym_kConst]; ACTIONS 809 [sym_kExcept];
   ACTIONS 811 [sym_kFinally]; ACTIONS 709 [sym_kFor]; ACTIONS 711 [sym_kFunction];
   ACTIONS 713 [sym_kGoto]; ACTIONS 715 [sym_kIf]; ACTIONS 717 [sym_kInherited];
   ACTIONS 689 [sym_kNil]; ACTIONS 687 [sym_kNot]; ACTIONS 711 [sym_kProcedure];
   ACTIONS 719 [sym_kRaise]; ACTIONS 721 [sym_kRepeat]; ACTIONS 723 [sym_kString];
   ACTIONS 725 [sym_kTry]; ACTIONS 727 [sym_kVar]; ACTIONS 729 [sym_kWhile];
   ACTIONS 731 [sym_kWith]].

(** State 151. *)
Definition ts_parse_table_151 : parse_row :=
  [STATE 6061 [sym_if]; STATE 6122 [sym_ifElse; sym_while; sym_repeat; sym_for; sym_foreach;
   sym_try; sym_case; sym_block; sym_asm; sym_with; sym_raise; sym_statement; sym_goto;
   sym__statement]; STATE 13608 [sym_ifTr; sym_ifElseTr; sym_whileTr; sym_repeatTr; sym_forTr;
   sym_foreachTr; sym_tryTr; sym_caseTr]; STATE 13949 [sym_blockTr]; STATE 13608 [sym_asmTr;
   sym_withTr; sym_raiseTr; sym_statementTr; sym_gotoTr; sym__statementTr];
   STATE 12950 [sym_assignment]; STATE 11871 [sym_varAssignDef]; STATE 12950 [sym_varDef;
   sym_constDef]; STATE 6126 [sym_label]; STATE 13608 [sym__statementsTr];
   STATE 13338 [sym_statementsTr]; STATE 7879 [sym__expr; sym_exprConditional];
   STATE 7259 [sym__ref; sym_lambda; sym_inherited; sym_exprDot; sym_exprDeref; sym_exprAs;
   sym_exprTpl; sym_exprSubscript; sym_exprCall]; STATE 7879 [sym_exprBinary; sym_exprUnary];
   STATE 7259 [sym_exprParens; sym_exprBrackets; sym__literal; sym_literalString];
   STATE 6541 [sym__literalString; sym_literalChar]; STATE 7259 [sym_literalNumber];
   STATE 7426 [sym__literalInt; sym__literalFloat]; STATE 1382 [sym__ppIf];
   STATE 6122 [sym__ppStatementBlock]; STATE 11556 [aux_sym_labeledStatement_repeat1];
   STATE 862 [aux_sym__statementsTr_repeat1]; STATE 6541 [aux_sym_literalString_repeat1];
   ACTIONS 671 [anon_sym_SEMI]; ACTIONS 673 [anon_sym_LBRACK]; ACTIONS 675 [anon_sym_LPAREN];
   ACTIONS 677 [aux_sym__literalString_token1]; ACTIONS 679 [anon_sym_POUND];
   ACTIONS 681 [aux_sym__literalInt_token1]; ACTIONS 683 [aux_sym__literalInt_token2;
   aux_sym__literalInt_token3]; ACTIONS 681 [aux_sym__literalFloat_token1];
   ACTIONS 411 [aux_sym_ppUsesBlock_token1]; ACTIONS 685 [sym_kAdd; sym_kSub];
   ACTIONS 687 [sym_kAt]; ACTIONS 689 [sym_kTrue; sym_kFalse]; ACTIONS 691 [sym_labelNumber];
   ACTIONS 3 [sym__space]; ACTIONS 5 [sym_ppDirective]; ACTIONS 3 [sym_comment];
   ACTIONS 689 [sym_ppFragmentExpr]; ACTIONS 671 [sym_ppFragmentStmt];
   ACTIONS 677 [sym__literalStringMultiline]; ACTIONS 693 [sym_identifier];
   ACTIONS 695 [sym_kSpecialize]; ACTIONS 697 [sym_kAsm]; ACTIONS 699 [sym_kBegin];
   ACTIONS 701 [sym_kCase]; ACTIONS 703 [sym_kConst]; ACTIONS 813 [sym_kExcept];
   ACTIONS 815 [sym_kFinally]; ACTIONS 709 [sym_kFor]; ACTIONS 711 [sym_kFunction];
   ACTIONS 713 [sym_kGoto]; ACTIONS 715 [sym_kIf]; ACTIONS 717 [sym_kInherited];
   ACTIONS 689 [sym_kNil]; ACTIONS 687 [sym_kNot]; ACTIONS 711 [sym_kProcedure];
   ACTIONS 719 [sym_kRaise]; ACTIONS 721 [sym_kRepeat]; ACTIONS 723 [sym_kString];
   ACTIONS 725 [sym_kTry]; ACTIONS 727 [sym_kVar]; ACTIONS 729 [sym_kWhile];
   ACTIONS 731 [sym_kWith]].

(** State 152. *)
Definition ts_parse_table_152 : parse_row :=
  [STATE 6061 [sym_if]; STATE 6122 [sym_ifElse; sym_while; sym_repeat; sym_for; sym_foreach;
   sym_try; sym_case; sym_block; sym_asm; sym_with; sym_raise; sym_statement; sym_goto;
   sym__statement]; STATE 13608 [sym_ifTr; sym_ifElseTr; sym_whileTr; sym_repeatTr; sym_forTr;
   sym_foreachTr; sym_tryTr; sym_caseTr]; STATE 13949 [sym_blockTr]; STATE 13608 [sym_asmTr;
   sym_withTr; sym_raiseTr; sym_statementTr; sym_gotoTr; sym__statementTr];
   STATE 12950 [sym_assignment]; STATE 11871 [sym_varAssignDef]; STATE 12950 [sym_varDef;
   sym_constDef]; STATE 6126 [sym_label]; STATE 13608 [sym__statementsTr];
   STATE 12988 [sym_statementsTr]; STATE 7879 [sym__expr; sym_exprConditional];
   STATE 7259 [sym__ref; sym_lambda; sym_inherited; sym_exprDot; sym_exprDeref; sym_exprAs;
   sym_exprTpl; sym_exprSubscript; sym_exprCall]; STATE 7879 [sym_exprBinary; sym_exprUnary];
   STATE 7259 [sym_exprParens; sym_exprBrackets; sym__literal; sym_literalString];
   STATE 6541 [sym__literalString; sym_literalChar]; STATE 7259 [sym_literalNumber];
   STATE 7426 [sym__literalInt; sym__literalFloat]; STATE 1382 [sym__ppIf];
   STATE 6122 [sym__ppStatementBlock]; STATE 11556 [aux_sym_labeledStatement_repeat1];
   STATE 862 [aux_sym__statementsTr_repeat1]; STATE 6541 [aux_sym_literalString_repeat1];
   ACTIONS 671 [anon_sym_SEMI]; ACTIONS 673 [anon_sym_LBRACK]; ACTIONS 675 [anon_sym_LPAREN];
   ACTIONS 677 [aux_sym__literalString_token1]; ACTIONS 679 [anon_sym_POUND];
   ACTIONS 681 [aux_sym__literalInt_token1]; ACTIONS 683 [aux_sym__literalInt_token2;
   aux_sym__literalInt_token3]; ACTIONS 681 [aux_sym__literalFloat_token1];
   ACTIONS 411 [aux_sym_ppUsesBlock_token1]; ACTIONS 685 [sym_kAdd; sym_kSub];
   ACTIONS 687 [sym_kAt]; ACTIONS 689 [sym_kTrue; sym_kFalse]; ACTIONS 691 [sym_labelNumber];
   ACTIONS 3 [sym__space]; ACTIONS 5 [sym_ppDirective]; ACTIONS 3 [sym_comment];
   ACTIONS 689 [sym_ppFragmentExpr]; ACTIONS 671 [sym_ppFragmentStmt];
   ACTIONS 677 [sym__literalStringMultiline]; ACTIONS 693 [sym_identifier];
   ACTIONS 695 [sym_kSpecialize]; ACTIONS 697 [sym_kAsm]; ACTIONS 699 [sym_kBegin];
   ACTIONS 701 [sym_kCase]; ACTIONS 703 [sym_kConst]; ACTIONS 817 [sym_kExcept];
   ACTIONS 819 [sym_kFinally]; ACTIONS 709 [sym_kFor]; ACTIONS 711 [sym_kFunction];
   ACTIONS 713 [sym_kGoto]; ACTIONS 715 [sym_kIf]; ACTIONS 717 [sym_kInherited];
   ACTIONS 689 [sym_kNil]; ACTIONS 687 [sym_kNot]; ACTIONS 711 [sym_kProcedure];
   ACTIONS 719 [sym_kRaise]; ACTIONS 721 [sym_kRepeat]; ACTIONS 723 [sym_kString];
   ACTIONS 725 [sym_kTry]; ACTIONS 727 [sym_kVar]; ACTIONS 729 [sym_kWhile];
   ACTIONS 731 [sym_kWith]].

(** State 153. *)
Definition ts_parse_table_153 : parse_row :=
  [STATE 6061 [sym_if]; STATE 6122 [sym_ifElse; sym_while; sym_repeat; sym_for; sym_foreach;
   sym_try; sym_case; sym_block; sym_asm; sym_with; sym_raise; sym_statement; sym_goto;
   sym__statement]; STATE 13608 [sym_ifTr; sym_ifElseTr; sym_whileTr; sym_repeatTr; sym_forTr;
   sym_foreachTr; sym_tryTr; sym_caseTr]; STATE 13949 [sym_blockTr]; STATE 13608 [sym_asmTr;
   sym_withTr; sym_raiseTr; sym_statementTr; sym_gotoTr; sym__statementTr];
   STATE 12950 [sym_assignment]; STATE 11871 [sym_varAssignDef]; STATE 12950 [sym_varDef;
   sym_constDef]; STATE 6126 [sym_label]; STATE 13608 [sym__statementsTr];
   STATE 13030 [sym_statementsTr]; STATE 7879 [sym__expr; sym_exprConditional];
   STATE 7259 [sym__ref; sym_lambda; sym_inherited; sym_exprDot; sym_exprDeref; sym_exprAs;
   sym_exprTpl; sym_exprSubscript; sym_exprCall]; STATE 7879 [sym_exprBinary; sym_exprUnary];
   STATE 7259 [sym_exprParens; sym_exprBrackets; sym__literal; sym_literalString];
   STATE 6541 [sym__literalString; sym_literalChar]; STATE 7259 [sym_literalNumber];
   STATE 7426 [sym__literalInt; sym__literalFloat]; STATE 1382 [sym__ppIf];
   STATE 6122 [sym__ppStatementBlock]; STATE 11556 [aux_sym_labeledStatement_repeat1];
   STATE 862 [aux_sym__statementsTr_repeat1]; STATE 6541 [aux_sym_literalString_repeat1];
   ACTIONS 671 [anon_sym_SEMI]; ACTIONS 673 [anon_sym_LBRACK]; ACTIONS 675 [anon_sym_LPAREN];
   ACTIONS 677 [aux_sym__literalString_token1]; ACTIONS 679 [anon_sym_POUND];
   ACTIONS 681 [aux_sym__literalInt_token1]; ACTIONS 683 [aux_sym__literalInt_token2;
   aux_sym__literalInt_token3]; ACTIONS 681 [aux_sym__literalFloat_token1];
   ACTIONS 411 [aux_sym_ppUsesBlock_token1]; ACTIONS 685 [sym_kAdd; sym_kSub];
   ACTIONS 687 [sym_kAt]; ACTIONS 689 [sym_kTrue; sym_kFalse]; ACTIONS 691 [sym_labelNumber];
   ACTIONS 3 [sym__space]; ACTIONS 5 [sym_ppDirective]; ACTIONS 3 [sym_comment];
   ACTIONS 689 [sym_ppFragmentExpr]; ACTIONS 671 [sym_ppFragmentStmt];
   ACTIONS 677 [sym__literalStringMultiline]; ACTIONS 693 [sym_identifier];
   ACTIONS 695 [sym_kSpecialize]; ACTIONS 697 [sym_kAsm]; ACTIONS 699 [sym_kBegin];
   ACTIONS 701 [sym_kCase]; ACTIONS 703 [sym_kConst]; ACTIONS 821 [sym_kExcept];
   ACTIONS 823 [sym_kFinally]; ACTIONS 709 [sym_kFor]; ACTIONS 711 [sym_kFunction];
   ACTIONS 713 [sym_kGoto]; ACTIONS 715 [sym_kIf]; ACTIONS 717 [sym_kInherited];
   ACTIONS 689 [sym_kNil]; ACTIONS 687 [sym_kNot]; ACTIONS 711 [sym_kProcedure];
   ACTIONS 719 [sym_kRaise]; ACTIONS 721 [sym_kRepeat]; ACTIONS 723 [sym_kString];
   ACTIONS 725 [sym_kTry]; ACTIONS 727 [sym_kVar]; ACTIONS 729 [sym_kWhile];
   ACTIONS 731 [sym_kWith]].

(** State 154. *)
Definition ts_parse_table_154 : parse_row :=
  [STATE 6061 [sym_if]; STATE 6122 [sym_ifElse; sym_while; sym_repeat; sym_for; sym_foreach;
   sym_try; sym_case; sym_block; sym_asm; sym_with; sym_raise; sym_statement; sym_goto;
   sym__statement]; STATE 13608 [sym_ifTr; sym_ifElseTr; sym_whileTr; sym_repeatTr; sym_forTr;
   sym_foreachTr; sym_tryTr; sym_caseTr]; STATE 13949 [sym_blockTr]; STATE 13608 [sym_asmTr;
   sym_withTr; sym_raiseTr; sym_statementTr; sym_gotoTr; sym__statementTr];
   STATE 12950 [sym_assignment]; STATE 11871 [sym_varAssignDef]; STATE 12950 [sym_varDef;
   sym_constDef]; STATE 6126 [sym_label]; STATE 13608 [sym__statementsTr];
   STATE 13389 [sym_statementsTr]; STATE 7879 [sym__expr; sym_exprConditional];
   STATE 7259 [sym__ref; sym_lambda; sym_inherited; sym_exprDot; sym_exprDeref; sym_exprAs;
   sym_exprTpl; sym_exprSubscript; sym_exprCall]; STATE 7879 [sym_exprBinary; sym_exprUnary];
   STATE 7259 [sym_exprParens; sym_exprBrackets; sym__literal; sym_literalString];
   STATE 6541 [sym__literalString; sym_literalChar]; STATE 7259 [sym_literalNumber];
   STATE 7426 [sym__literalInt; sym__literalFloat]; STATE 1382 [sym__ppIf];
   STATE 6122 [sym__ppStatementBlock]; STATE 11556 [aux_sym_labeledStatement_repeat1];
   STATE 862 [aux_sym__statementsTr_repeat1]; STATE 6541 [aux_sym_literalString_repeat1];
   ACTIONS 671 [anon_sym_SEMI]; ACTIONS 673 [anon_sym_LBRACK]; ACTIONS 675 [anon_sym_LPAREN];
   ACTIONS 677 [aux_sym__literalString_token1]; ACTIONS 679 [anon_sym_POUND];
   ACTIONS 681 [aux_sym__literalInt_token1]; ACTIONS 683 [aux_sym__literalInt_token2;
   aux_sym__literalInt_token3]; ACTIONS 681 [aux_sym__literalFloat_token1];
   ACTIONS 411 [aux_sym_ppUsesBlock_token1]; ACTIONS 685 [sym_kAdd; sym_kSub];
   ACTIONS 687 [sym_kAt]; ACTIONS 689 [sym_kTrue; sym_kFalse]; ACTIONS 691 [sym_labelNumber];
   ACTIONS 3 [sym__space]; ACTIONS 5 [sym_ppDirective]; ACTIONS 3 [sym_comment];
   ACTIONS 689 [sym_ppFragmentExpr]; ACTIONS 671 [sym_ppFragmentStmt];
   ACTIONS 677 [sym__literalStringMultiline]; ACTIONS 693 [sym_identifier];
   ACTIONS 695 [sym_kSpecialize]; ACTIONS 697 [sym_kAsm]; ACTIONS 699 [sym_kBegin];
   ACTIONS 701 [sym_kCase]; ACTIONS 703 [sym_kConst]; ACTIONS 825 [sym_kExcept];
   ACTIONS 827 [sym_kFinally]; ACTIONS 709 [sym_kFor]; ACTIONS 711 [sym_kFunction];
   ACTIONS 713 [sym_kGoto]; ACTIONS 715 [sym_kIf]; ACTIONS 717 [sym_kInherited];
   ACTIONS 689 [sym_kNil]; ACTIONS 687 [sym_kNot]; ACTIONS 711 [sym_kProcedure];
   ACTIONS 719 [sym_kRaise]; ACTIONS 721 [sym_kRepeat]; ACTIONS 723 [sym_kString];
   ACTIONS 725 [sym_kTry]; ACTIONS 727 [sym_kVar]; ACTIONS 729 [sym_kWhile];
   ACTIONS 731 [sym_kWith]].

(** State 155. *)
Definition ts_parse_table_155 : parse_row :=
  [STATE 6061 [sym_if]; STATE 6122 [sym_ifElse; sym_while; sym_repeat; sym_for; sym_foreach;
   sym_try; sym_case; sym_block; sym_asm; sym_with; sym_raise; sym_statement; sym_goto;
   sym__statement]; STATE 13608 [sym_ifTr; sym_ifElseTr; sym_whileTr; sym_repeatTr; sym_forTr;
   sym_foreachTr; sym_tryTr; sym_caseTr]; STATE 13949 [sym_blockTr]; STATE 13608 [sym_asmTr;
   sym_withTr; sym_raiseTr; sym_statementTr; sym_gotoTr; sym__statementTr];
   STATE 12950 [sym_assignment]; STATE 11871 [sym_varAssignDef]; STATE 12950 [sym_varDef;
   sym_constDef]; STATE 6126 [sym_label]; STATE 13608 [sym__statementsTr];
   STATE 13405 [sym_statementsTr]; STATE 7879 [sym__expr; sym_exprConditional];
   STATE 7259 [sym__ref; sym_lambda; sym_inherited; sym_exprDot; sym_exprDeref; sym_exprAs;
   sym_exprTpl; sym_exprSubscript; sym_exprCall]; STATE 7879 [sym_exprBinary; sym_exprUnary];
   STATE 7259 [sym_exprParens; sym_exprBrackets; sym__literal; sym_literalString];
   STATE 6541 [sym__literalString; sym_literalChar]; STATE 7259 [sym_literalNumber];
   STATE 7426 [sym__literalInt; sym__literalFloat]; STATE 1382 [sym__ppIf];
   STATE 6122 [sym__ppStatementBlock]; STATE 11556 [aux_sym_labeledStatement_repeat1];
   STATE 862 [aux_sym__statementsTr_repeat1]; STATE 6541 [aux_sym_literalString_repeat1];
   ACTIONS 671 [anon_sym_SEMI]; ACTIONS 673 [anon_sym_LBRACK]; ACTIONS 675 [anon_sym_LPAREN];
   ACTIONS 677 [aux_sym__literalString_token1]; ACTIONS 679 [anon_sym_POUND];
   ACTIONS 681 [aux_sym__literalInt_token1]; ACTIONS 683 [aux_sym__literalInt_token2;
   aux_sym__literalInt_token3]; ACTIONS 681 [aux_sym__literalFloat_token1];
   ACTIONS 411 [aux_sym_ppUsesBlock_token1]; ACTIONS 685 [sym_kAdd; sym_kSub];
   ACTIONS 687 [sym_kAt]; ACTIONS 689 [sym_kTrue; sym_kFalse]; ACTIONS 691 [sym_labelNumber];
   ACTIONS 3 [sym__space]; ACTIONS 5 [sym_ppDirective]; ACTIONS 3 [sym_comment];
   ACTIONS 689 [sym_ppFragmentExpr]; ACTIONS 671 [sym_ppFragmentStmt];
   ACTIONS 677 [sym__literalStringMultiline]; ACTIONS 693 [sym_identifier];
   ACTIONS 695 [sym_kSpecialize]; ACTIONS 697 [sym_kAsm]; ACTIONS 699 [sym_kBegin];
   ACTIONS 701 [sym_kCase]; ACTIONS 703 [sym_kConst]; ACTIONS 829 [sym_kExcept];
   ACTIONS 831 [sym_kFinally]; ACTIONS 709 [sym_kFor]; ACTIONS 711 [sym_kFunction];
   ACTIONS 713 [sym_kGoto]; ACTIONS 715 [sym_kIf]; ACTIONS 717 [sym_kInherited];
   ACTIONS 689 [sym_kNil]; ACTIONS 687 [sym_kNot]; ACTIONS 711 [sym_kProcedure];
   ACTIONS 719 [sym_kRaise]; ACTIONS 721 [sym_kRepeat]; ACTIONS 723 [sym_kString];
   ACTIONS 725 [sym_kTry]; ACTIONS 727 [sym_kVar]; ACTIONS 729 [sym_kWhile];
   ACTIONS 731 [sym_kWith]].

(** State 156. *)
Definition ts_parse_table_156 : parse_row :=
  [STATE 6061 [sym_if]; STATE 6122 [sym_ifElse; sym_while; sym_repeat; sym_for; sym_foreach;
   sym_try; sym_case; sym_block; sym_asm; sym_with; sym_raise; sym_statement; sym_goto;
   sym__statement]; STATE 13608 [sym_ifTr; sym_ifElseTr; sym_whileTr; sym_repeatTr; sym_forTr;
   sym_foreachTr; sym_tryTr; sym_caseTr]; STATE 13949 [sym_blockTr]; STATE 13608 [sym_asmTr;
   sym_withTr; sym_raiseTr; sym_statementTr; sym_gotoTr; sym__statementTr];
   STATE 12950 [sym_assignment]; STATE 11871 [sym_varAssignDef]; STATE 12950 [sym_varDef;
   sym_constDef]; STATE 6126 [sym_label]; STATE 13608 [sym__statementsTr];
   STATE 13419 [sym_statementsTr]; STATE 7879 [sym__expr; sym_exprConditional];
   STATE 7259 [sym__ref; sym_lambda; sym_inherited; sym_exprDot; sym_exprDeref; sym_exprAs;
   sym_exprTpl; sym_exprSubscript; sym_exprCall]; STATE 7879 [sym_exprBinary; sym_exprUnary];
   STATE 7259 [sym_exprParens; sym_exprBrackets; sym__literal; sym_literalString];
   STATE 6541 [sym__literalString; sym_literalChar]; STATE 7259 [sym_literalNumber];
   STATE 7426 [sym__literalInt; sym__literalFloat]; STATE 1382 [sym__ppIf];
   STATE 6122 [sym__ppStatementBlock]; STATE 11556 [aux_sym_labeledStatement_repeat1];
   STATE 862 [aux_sym__statementsTr_repeat1]; STATE 6541 [aux_sym_literalString_repeat1];
   ACTIONS 671 [anon_sym_SEMI]; ACTIONS 673 [anon_sym_LBRACK]; ACTIONS 675 [anon_sym_LPAREN];
   ACTIONS 677 [aux_sym__literalString_token1]; ACTIONS 679 [anon_sym_POUND];
   ACTIONS 681 [aux_sym__literalInt_token1]; ACTIONS 683 [aux_sym__literalInt_token2;
   aux_sym__literalInt_token3]; ACTIONS 681 [aux_sym__literalFloat_token1];
   ACTIONS 411 [aux_sym_ppUsesBlock_token1]; ACTIONS 685 [sym_kAdd; sym_kSub];
   ACTIONS 687 [sym_kAt]; ACTIONS 689 [sym_kTrue; sym_kFalse]; ACTIONS 691 [sym_labelNumber];
   ACTIONS 3 [sym__space]; ACTIONS 5 [sym_ppDirective]; ACTIONS 3 [sym_comment];
   ACTIONS 689 [sym_ppFragmentExpr]; ACTIONS 671 [sym_ppFragmentStmt];
   ACTIONS 677 [sym__literalStringMultiline]; ACTIONS 693 [sym_identifier];
   ACTIONS 695 [sym_kSpecialize]; ACTIONS 697 [sym_kAsm]; ACTIONS 699 [sym_kBegin];
   ACTIONS 701 [sym_kCase]; ACTIONS 703 [sym_kConst]; ACTIONS 833 [sym_kExcept];
   ACTIONS 835 [sym_kFinally]; ACTIONS 709 [sym_kFor]; ACTIONS 711 [sym_kFunction];
   ACTIONS 713 [sym_kGoto]; ACTIONS 715 [sym_kIf]; ACTIONS 717 [sym_kInherited];
   ACTIONS 689 [sym_kNil]; ACTIONS 687 [sym_kNot]; ACTIONS 711 [sym_kProcedure];
   ACTIONS 719 [sym_kRaise]; ACTIONS 721 [sym_kRepeat]; ACTIONS 723 [sym_kString];
   ACTIONS 725 [sym_kTry]; ACTIONS 727 [sym_kVar]; ACTIONS 729 [sym_kWhile];
   ACTIONS 731 [sym_kWith]].

(** State 157. *)
Definition ts_parse_table_157 : parse_row :=
  [STATE 6061 [sym_if]; STATE 6122 [sym_ifElse; sym_while; sym_repeat; sym_for; sym_foreach;
   sym_try; sym_case; sym_block; sym_asm; sym_with; sym_raise; sym_statement; sym_goto;
   sym__statement]; STATE 13608 [sym_ifTr; sym_ifElseTr; sym_whileTr; sym_repeatTr; sym_forTr;
   sym_foreachTr; sym_tryTr; sym_caseTr]; STATE 13949 [sym_blockTr]; STATE 13608 [sym_asmTr;
   sym_withTr; sym_raiseTr; sym_statementTr; sym_gotoTr; sym__statementTr];
   STATE 12950 [sym_assignment]; STATE 11871 [sym_varAssignDef]; STATE 12950 [sym_varDef;
   sym_constDef]; STATE 6126 [sym_label]; STATE 13608 [sym__statementsTr];
   STATE 13435 [sym_statementsTr]; STATE 7879 [sym__expr; sym_exprConditional];
   STATE 7259 [sym__ref; sym_lambda; sym_inherited; sym_exprDot; sym_exprDeref; sym_exprAs;
   sym_exprTpl; sym_exprSubscript; sym_exprCall]; STATE 7879 [sym_exprBinary; sym_exprUnary];
   STATE 7259 [sym_exprParens; sym_exprBrackets; sym__literal; sym_literalString];
   STATE 6541 [sym__literalString; sym_literalChar]; STATE 7259 [sym_literalNumber];
   STATE 7426 [sym__literalInt; sym__literalFloat]; STATE 1382 [sym__ppIf];
   STATE 6122 [sym__ppStatementBlock]; STATE 11556 [aux_sym_labeledStatement_repeat1];
   STATE 862 [aux_sym__statementsTr_repeat1]; STATE 6541 [aux_sym_literalString_repeat1];
   ACTIONS 671 [anon_sym_SEMI]; ACTIONS 673 [anon_sym_LBRACK]; ACTIONS 675 [anon_sym_LPAREN];
   ACTIONS 677 [aux_sym__literalString_token1]; ACTIONS 679 [anon_sym_POUND];
   ACTIONS 681 [aux_sym__literalInt_token1]; ACTIONS 683 [aux_sym__literalInt_token2;
   aux_sym__literalInt_token3]; ACTIONS 681 [aux_sym__literalFloat_token1];
   ACTIONS 411 [aux_sym_ppUsesBlock_token1]; ACTIONS 685 [sym_kAdd; sym_kSub];
   ACTIONS 687 [sym_kAt]; ACTIONS 689 [sym_kTrue; sym_kFalse]; ACTIONS 691 [sym_labelNumber];
   ACTIONS 3 [sym__space]; ACTIONS 5 [sym_ppDirective]; ACTIONS 3 [sym_comment];
   ACTIONS 689 [sym_ppFragmentExpr]; ACTIONS 671 [sym_ppFragmentStmt];
   ACTIONS 677 [sym__literalStringMultiline]; ACTIONS 693 [sym_identifier];
   ACTIONS 695 [sym_kSpecialize]; ACTIONS 697 [sym_kAsm]; ACTIONS 699 [sym_kBegin];
   ACTIONS 701 [sym_kCase]; ACTIONS 703 [sym_kConst]; ACTIONS 837 [sym_kExcept];
   ACTIONS 839 [sym_kFinally]; ACTIONS 709 [sym_kFor]; ACTIONS 711 [sym_kFunction];
   ACTIONS 713 [sym_kGoto]; ACTIONS 715 [sym_kIf]; ACTIONS 717 [sym_kInherited];
   ACTIONS 689 [sym_kNil]; ACTIONS 687 [sym_kNot]; ACTIONS 711 [sym_kProcedure];
   ACTIONS 719 [sym_kRaise]; ACTIONS 721 [sym_kRepeat]; ACTIONS 723 [sym_kString];
   ACTIONS 725 [sym_kTry]; ACTIONS 727 [sym_kVar]; ACTIONS 729 [sym_kWhile];
   ACTIONS 731 [sym_kWith]].

(** State 158. *)
Definition ts_parse_table_158 : parse_row :=
  [STATE 6061 [sym_if]; STATE 6122 [sym_ifElse; sym_while; sym_repeat; sym_for; sym_foreach;
   sym_try; sym_case; sym_block; sym_asm; sym_with; sym_raise; sym_statement; sym_goto;
   sym__statement]; STATE 13608 [sym_ifTr; sym_ifElseTr; sym_whileTr; sym_repeatTr; sym_forTr;
   sym_foreachTr; sym_tryTr; sym_caseTr]; STATE 13949 [sym_blockTr]; STATE 13608 [sym_asmTr;
   sym_withTr; sym_raiseTr; sym_statementTr; sym_gotoTr; sym__statementTr];
   STATE 12950 [sym_assignment]; STATE 11871 [sym_varAssignDef]; STATE 12950 [sym_varDef;
   sym_constDef]; STATE 6126 [sym_label]; STATE 13608 [sym__statementsTr];
   STATE 13449 [sym_statementsTr]; STATE 7879 [sym__expr; sym_exprConditional];
   STATE 7259 [sym__ref; sym_lambda; sym_inherited; sym_exprDot; sym_exprDeref; sym_exprAs;
   sym_exprTpl; sym_exprSubscript; sym_exprCall]; STATE 7879 [sym_exprBinary; sym_exprUnary];
   STATE 7259 [sym_exprParens; sym_exprBrackets; sym__literal; sym_literalString];
   STATE 6541 [sym__literalString; sym_literalChar]; STATE 7259 [sym_literalNumber];
   STATE 7426 [sym__literalInt; sym__literalFloat]; STATE 1382 [sym__ppIf];
   STATE 6122 [sym__ppStatementBlock]; STATE 11556 [aux_sym_labeledStatement_repeat1];
   STATE 862 [aux_sym__statementsTr_repeat1]; STATE 6541 [aux_sym_literalString_repeat1];
   ACTIONS 671 [anon_sym_SEMI]; ACTIONS 673 [anon_sym_LBRACK]; ACTIONS 675 [anon_sym_LPAREN];
   ACTIONS 677 [aux_sym__literalString_token1]; ACTIONS 679 [anon_sym_POUND];
   ACTIONS 681 [aux_sym__literalInt_token1]; ACTIONS 683 [aux_sym__literalInt_token2;
   aux_sym__literalInt_token3]; ACTIONS 681 [aux_sym__literalFloat_token1];
   ACTIONS 411 [aux_sym_ppUsesBlock_token1]; ACTIONS 685 [sym_kAdd; sym_kSub];
   ACTIONS 687 [sym_kAt]; ACTIONS 689 [sym_kTrue; sym_kFalse]; ACTIONS 691 [sym_labelNumber];
   ACTIONS 3 [sym__space]; ACTIONS 5 [sym_ppDirective]; ACTIONS 3 [sym_comment];
   ACTIONS 689 [sym_ppFragmentExpr]; ACTIONS 671 [sym_ppFragmentStmt];
   ACTIONS 677 [sym__literalStringMultiline]; ACTIONS 693 [sym_identifier];
   ACTIONS 695 [sym_kSpecialize]; ACTIONS 697 [sym_kAsm]; ACTIONS 699 [sym_kBegin];
   ACTIONS 701 [sym_kCase]; ACTIONS 703 [sym_kConst]; ACTIONS 841 [sym_kExcept];
   ACTIONS 843 [sym_kFinally]; ACTIONS 709 [sym_kFor]; ACTIONS 711 [sym_kFunction];
   ACTIONS 713 [sym_kGoto]; ACTIONS 715 [sym_kIf]; ACTIONS 717 [sym_kInherited];
   ACTIONS 689 [sym_kNil]; ACTIONS 687 [sym_kNot]; ACTIONS 711 [sym_kProcedure];
   ACTIONS 719 [sym_kRaise]; ACTIONS 721 [sym_kRepeat]; ACTIONS 723 [sym_kString];
   ACTIONS 725 [sym_kTry]; ACTIONS 727 [sym_kVar]; ACTIONS 729 [sym_kWhile];
   ACTIONS 731 [sym_kWith]].

(** State 159. *)
Definition ts_parse_table_159 : parse_row :=
  [STATE 6061 [sym_if]; STATE 6122 [sym_ifElse; sym_while; sym_repeat; sym_for; sym_foreach;
   sym_try; sym_case; sym_block; sym_asm; sym_with; sym_raise; sym_statement; sym_goto;
   sym__statement]; STATE 13608 [sym_ifTr; sym_ifElseTr; sym_whileTr; sym_repeatTr; sym_forTr;
   sym_foreachTr; sym_tryTr; sym_caseTr]; STATE 13949 [sym_blockTr]; STATE 13608 [sym_asmTr;
   sym_withTr; sym_raiseTr; sym_statementTr; sym_gotoTr; sym__statementTr];
   STATE 12950 [sym_assignment]; STATE 11871 [sym_varAssignDef]; STATE 12950 [sym_varDef;
   sym_constDef]; STATE 6126 [sym_label]; STATE 13608 [sym__statementsTr];
   STATE 13467 [sym_statementsTr]; STATE 7879 [sym__expr; sym_exprConditional];
   STATE 7259 [sym__ref; sym_lambda; sym_inherited; sym_exprDot; sym_exprDeref; sym_exprAs;
   sym_exprTpl; sym_exprSubscript; sym_exprCall]; STATE 7879 [sym_exprBinary; sym_exprUnary];
   STATE 7259 [sym_exprParens; sym_exprBrackets; sym__literal; sym_literalString];
   STATE 6541 [sym__literalString; sym_literalChar]; STATE 7259 [sym_literalNumber];
   STATE 7426 [sym__literalInt; sym__literalFloat]; STATE 1382 [sym__ppIf];
   STATE 6122 [sym__ppStatementBlock]; STATE 11556 [aux_sym_labeledStatement_repeat1];
   STATE 862 [aux_sym__statementsTr_repeat1]; STATE 6541 [aux_sym_literalString_repeat1];
   ACTIONS 671 [anon_sym_SEMI]; ACTIONS 673 [anon_sym_LBRACK]; ACTIONS 675 [anon_sym_LPAREN];
   ACTIONS 677 [aux_sym__literalString_token1]; ACTIONS 679 [anon_sym_POUND];
   ACTIONS 681 [aux_sym__literalInt_token1]; ACTIONS 683 [aux_sym__literalInt_token2;
   aux_sym__literalInt_token3]; ACTIONS 681 [aux_sym__literalFloat_token1];
   ACTIONS 411 [aux_sym_ppUsesBlock_token1]; ACTIONS 685 [sym_kAdd; sym_kSub];
   ACTIONS 687 [sym_kAt]; ACTIONS 689 [sym_kTrue; sym_kFalse]; ACTIONS 691 [sym_labelNumber];
   ACTIONS 3 [sym__space]; ACTIONS 5 [sym_ppDirective]; ACTIONS 3 [sym_comment];
   ACTIONS 689 [sym_ppFragmentExpr]; ACTIONS 671 [sym_ppFragmentStmt];
   ACTIONS 677 [sym__literalStringMultiline]; ACTIONS 693 [sym_identifier];
   ACTIONS 695 [sym_kSpecialize]; ACTIONS 697 [sym_kAsm]; ACTIONS 699 [sym_kBegin];
   ACTIONS 701 [sym_kCase]; ACTIONS 703 [sym_kConst]; ACTIONS 845 [sym_kExcept];
   ACTIONS 847 [sym_kFinally]; ACTIONS 709 [sym_kFor]; ACTIONS 711 [sym_kFunction];
   ACTIONS 713 [sym_kGoto]; ACTIONS 715 [sym_kIf]; ACTIONS 717 [sym_kInherited];
   ACTIONS 689 [sym_kNil]; ACTIONS 687 [sym_kNot]; ACTIONS 711 [sym_kProcedure];
   ACTIONS 719 [sym_kRaise]; ACTIONS 721 [sym_kRepeat]; ACTIONS 723 [sym_kString];
   ACTIONS 725 [sym_kTry]; ACTIONS 727 [sym_kVar]; ACTIONS 729 [sym_kWhile];
   ACTIONS 731 [sym_kWith]].

(** State 160. *)
Definition ts_parse_table_160 : parse_row :=
  [STATE 6061 [sym_if]; STATE 6122 [sym_ifElse; sym_while; sym_repeat; sym_for; sym_foreach;
   sym_try; sym_case; sym_block; sym_asm; sym_with; sym_raise; sym_statement; sym_goto;
   sym__statement]; STATE 13608 [sym_ifTr; sym_ifElseTr; sym_whileTr; sym_repeatTr; sym_forTr;
   sym_foreachTr; sym_tryTr; sym_caseTr]; STATE 13949 [sym_blockTr]; STATE 13608 [sym_asmTr;
   sym_withTr; sym_raiseTr; sym_statementTr; sym_gotoTr; sym__statementTr];
   STATE 12950 [sym_assignment]; STATE 11871 [sym_varAssignDef]; STATE 12950 [sym_varDef;
   sym_constDef]; STATE 6126 [sym_label]; STATE 13608 [sym__statementsTr];
   STATE 13479 [sym_statementsTr]; STATE 7879 [sym__expr; sym_exprConditional];
   STATE 7259 [sym__ref; sym_lambda; sym_inherited; sym_exprDot; sym_exprDeref; sym_exprAs;
   sym_exprTpl; sym_exprSubscript; sym_exprCall]; STATE 7879 [sym_exprBinary; sym_exprUnary];
   STATE 7259 [sym_exprParens; sym_exprBrackets; sym__literal; sym_literalString];
   STATE 6541 [sym__literalString; sym_literalChar]; STATE 7259 [sym_literalNumber];
   STATE 7426 [sym__literalInt; sym__literalFloat]; STATE 1382 [sym__ppIf];
   STATE 6122 [sym__ppStatementBlock]; STATE 11556 [aux_sym_labeledStatement_repeat1];
   STATE 862 [aux_sym__statementsTr_repeat1]; STATE 6541 [aux_sym_literalString_repeat1];
   ACTIONS 671 [anon_sym_SEMI]; ACTIONS 673 [anon_sym_LBRACK]; ACTIONS 675 [anon_sym_LPAREN];
   ACTIONS 677 [aux_sym__literalString_token1]; ACTIONS 679 [anon_sym_POUND];
   ACTIONS 681 [aux_sym__literalInt_token1]; ACTIONS 683 [aux_sym__literalInt_token2;
   aux_sym__literalInt_token3]; ACTIONS 681 [aux_sym__literalFloat_token1];
   ACTIONS 411 [aux_sym_ppUsesBlock_token1]; ACTIONS 685 [sym_kAdd; sym_kSub];
   ACTIONS 687 [sym_kAt]; ACTIONS 689 [sym_kTrue; sym_kFalse]; ACTIONS 691 [sym_labelNumber];
   ACTIONS 3 [sym__space]; ACTIONS 5 [sym_ppDirective]; ACTIONS 3 [sym_comment];
   ACTIONS 689 [sym_ppFragmentExpr]; ACTIONS 671 [sym_ppFragmentStmt];
   ACTIONS 677 [sym__literalStringMultiline]; ACTIONS 693 [sym_identifier];
   ACTIONS 695 [sym_kSpecialize]; ACTIONS 697 [sym_kAsm]; ACTIONS 699 [sym_kBegin];
   ACTIONS 701 [sym_kCase]; ACTIONS 703 [sym_kConst]; ACTIONS 849 [sym_kExcept];
   ACTIONS 851 [sym_kFinally]; ACTIONS 709 [sym_kFor]; ACTIONS 711 [sym_kFunction];
   ACTIONS 713 [sym_kGoto]; ACTIONS 715 [sym_kIf]; ACTIONS 717 [sym_kInherited];
   ACTIONS 689 [sym_kNil]; ACTIONS 687 [sym_kNot]; ACTIONS 711 [sym_kProcedure];
   ACTIONS 719 [sym_kRaise]; ACTIONS 721 [sym_kRepeat]; ACTIONS 723 [sym_kString];
   ACTIONS 725 [sym_kTry]; ACTIONS 727 [sym_kVar]; ACTIONS 729 [sym_kWhile];
   ACTIONS 731 [sym_kWith]].

(** State 161. *)
Definition ts_parse_table_161 : parse_row :=
  [STATE 6061 [sym_if]; STATE 6122 [sym_ifElse; sym_while; sym_repeat; sym_for; sym_foreach;
   sym_try; sym_case; sym_block; sym_asm; sym_with; sym_raise; sym_statement; sym_goto;
   sym__statement]; STATE 13608 [sym_ifTr; sym_ifElseTr; sym_whileTr; sym_repeatTr; sym_forTr;
   sym_foreachTr; sym_tryTr; sym_caseTr]; STATE 13949 [sym_blockTr]; STATE 13608 [sym_asmTr;
   sym_withTr; sym_raiseTr; sym_statementTr; sym_gotoTr; sym__statementTr];
   STATE 12950 [sym_assignment]; STATE 11871 [sym_varAssignDef]; STATE 12950 [sym_varDef;
   sym_constDef]; STATE 6126 [sym_label]; STATE 13608 [sym__statementsTr];
   STATE 13491 [sym_statementsTr]; STATE 7879 [sym__expr; sym_exprConditional];
   STATE 7259 [sym__ref; sym_lambda; sym_inherited; sym_exprDot; sym_exprDeref; sym_exprAs;
   sym_exprTpl; sym_exprSubscript; sym_exprCall]; STATE 7879 [sym_exprBinary; sym_exprUnary];
   STATE 7259 [sym_exprParens; sym_exprBrackets; sym__literal; sym_literalString];
   STATE 6541 [sym__literalString; sym_literalChar]; STATE 7259 [sym_literalNumber];
   STATE 7426 [sym__literalInt; sym__literalFloat]; STATE 1382 [sym__ppIf];
   STATE 6122 [sym__ppStatementBlock]; STATE 11556 [aux_sym_labeledStatement_repeat1];
   STATE 862 [aux_sym__statementsTr_repeat1]; STATE 6541 [aux_sym_literalString_repeat1];
   ACTIONS 671 [anon_sym_SEMI]; ACTIONS 673 [anon_sym_LBRACK]; ACTIONS 675 [anon_sym_LPAREN];
   ACTIONS 677 [aux_sym__literalString_token1]; ACTIONS 679 [anon_sym_POUND];
   ACTIONS 681 [aux_sym__literalInt_token1]; ACTIONS 683 [aux_sym__literalInt_token2;
   aux_sym__literalInt_token3]; ACTIONS 681 [aux_sym__literalFloat_token1];
   ACTIONS 411 [aux_sym_ppUsesBlock_token1]; ACTIONS 685 [sym_kAdd; sym_kSub];
   ACTIONS 687 [sym_kAt]; ACTIONS 689 [sym_kTrue; sym_kFalse]; ACTIONS 691 [sym_labelNumber];
   ACTIONS 3 [sym__space]; ACTIONS 5 [sym_ppDirective]; ACTIONS 3 [sym_comment];
   ACTIONS 689 [sym_ppFragmentExpr]; ACTIONS 671 [sym_ppFragmentStmt];
   ACTIONS 677 [sym__literalStringMultiline]; ACTIONS 693 [sym_identifier];
   ACTIONS 695 [sym_kSpecialize]; ACTIONS 697 [sym_kAsm]; ACTIONS 699 [sym_kBegin];
   ACTIONS 701 [sym_kCase]; ACTIONS 703 [sym_kConst]; ACTIONS 853 [sym_kExcept];
   ACTIONS 855 [sym_kFinally]; ACTIONS 709 [sym_kFor]; ACTIONS 711 [sym_kFunction];
   ACTIONS 713 [sym_kGoto]; ACTIONS 715 [sym_kIf]; ACTIONS 717 [sym_kInherited];
   ACTIONS 689 [sym_kNil]; ACTIONS 687 [sym_kNot]; ACTIONS 711 [sym_kProcedure];
   ACTIONS 719 [sym_kRaise]; ACTIONS 721 [sym_kRepeat]; ACTIONS 723 [sym_kString];
   ACTIONS 725 [sym_kTry]; ACTIONS 727 [sym_kVar]; ACTIONS 729 [sym_kWhile];
   ACTIONS 731 [sym_kWith]].

(** State 162. *)
Definition ts_parse_table_162 : parse_row :=
  [STATE 6061 [sym_if]; STATE 6122 [sym_ifElse; sym_while; sym_repeat; sym_for; sym_foreach;
   sym_try; sym_case; sym_block; sym_asm; sym_with; sym_raise; sym_statement; sym_goto;
   sym__statement]; STATE 13608 [sym_ifTr; sym_ifElseTr; sym_whileTr; sym_repeatTr; sym_forTr;
   sym_foreachTr; sym_tryTr; sym_caseTr]; STATE 13949 [sym_blockTr]; STATE 13608 [sym_asmTr;
   sym_withTr; sym_raiseTr; sym_statementTr; sym_gotoTr; sym__statementTr];
   STATE 12950 [sym_assignment]; STATE 11871 [sym_varAssignDef]; STATE 12950 [sym_varDef;
   sym_constDef]; STATE 6126 [sym_label]; STATE 13608 [sym__statementsTr];
   STATE 13501 [sym_statementsTr]; STATE 7879 [sym__expr; sym_exprConditional];
   STATE 7259 [sym__ref; sym_lambda; sym_inherited; sym_exprDot; sym_exprDeref; sym_exprAs;
   sym_exprTpl; sym_exprSubscript; sym_exprCall]; STATE 7879 [sym_exprBinary; sym_exprUnary];
   STATE 7259 [sym_exprParens; sym_exprBrackets; sym__literal; sym_literalString];
   STATE 6541 [sym__literalString; sym_literalChar]; STATE 7259 [sym_literalNumber];
   STATE 7426 [sym__literalInt; sym__literalFloat]; STATE 1382 [sym__ppIf];
   STATE 6122 [sym__ppStatementBlock]; STATE 11556 [aux_sym_labeledStatement_repeat1];
   STATE 862 [aux_sym__statementsTr_repeat1]; STATE 6541 [aux_sym_literalString_repeat1];
   ACTIONS 671 [anon_sym_SEMI]; ACTIONS 673 [anon_sym_LBRACK]; ACTIONS 675 [anon_sym_LPAREN];
   ACTIONS 677 [aux_sym__literalString_token1]; ACTIONS 679 [anon_sym_POUND];
   ACTIONS 681 [aux_sym__literalInt_token1]; ACTIONS 683 [aux_sym__literalInt_token2;
   aux_sym__literalInt_token3]; ACTIONS 681 [aux_sym__literalFloat_token1];
   ACTIONS 411 [aux_sym_ppUsesBlock_token1]; ACTIONS 685 [sym_kAdd; sym_kSub];
   ACTIONS 687 [sym_kAt]; ACTIONS 689 [sym_kTrue; sym_kFalse]; ACTIONS 691 [sym_labelNumber];
   ACTIONS 3 [sym__space]; ACTIONS 5 [sym_ppDirective]; ACTIONS 3 [sym_comment];
   ACTIONS 689 [sym_ppFragmentExpr]; ACTIONS 671 [sym_ppFragmentStmt];
   ACTIONS 677 [sym__literalStringMultiline]; ACTIONS 693 [sym_identifier];
   ACTIONS 695 [sym_kSpecialize]; ACTIONS 697 [sym_kAsm]; ACTIONS 699 [sym_kBegin];
   ACTIONS 701 [sym_kCase]; ACTIONS 703 [sym_kConst]; ACTIONS 857 [sym_kExcept];
   ACTIONS 859 [sym_kFinally]; ACTIONS 709 [sym_kFor]; ACTIONS 711 [sym_kFunction];
   ACTIONS 713 [sym_kGoto]; ACTIONS 715 [sym_kIf]; ACTIONS 717 [sym_kInherited];
   ACTIONS 689 [sym_kNil]; ACTIONS 687 [sym_kNot]; ACTIONS 711 [sym_kProcedure];
   ACTIONS 719 [sym_kRaise]; ACTIONS 721 [sym_kRepeat]; ACTIONS 723 [sym_kString];
   ACTIONS 725 [sym_kTry]; ACTIONS 727 [sym_kVar]; ACTIONS 729 [sym_kWhile];
   ACTIONS 731 [sym_kWith]].

(** State 163. *)
Definition ts_parse_table_163 : parse_row :=
  [STATE 12283 [sym_genericDot; sym_genericTpl; sym__genericName]; STATE 17 [sym__ppIf];
   STATE 137 [sym_ppBlock; sym_declType]; STATE 12022 [sym_rttiAttributes];
   STATE 137 [aux_sym_declTypes_repeat1]; STATE 12404 [aux_sym_rttiAttributes_repeat2];
   ACTIONS 861 [anon_sym_SEMI; anon_sym_COMMA]; ACTIONS 863 [anon_sym_LBRACK];
   ACTIONS 866 [anon_sym_LPAREN]; ACTIONS 861 [aux_sym__literalString_token1; anon_sym_POUND];
   ACTIONS 866 [aux_sym__literalInt_token1]; ACTIONS 861 [aux_sym__literalInt_token2;
   aux_sym__literalInt_token3]; ACTIONS 866 [aux_sym__literalFloat_token1];
   ACTIONS 868 [aux_sym_ppUsesBlock_token1]; ACTIONS 861 [aux_sym_ppUsesBlock_token2;
   aux_sym_ppUsesBlock_token3]; ACTIONS 866 [sym_kAdd; sym_kSub]; ACTIONS 861 [sym_kAt;
   sym_kTrue; sym_kFalse]; ACTIONS 3 [sym__space]; ACTIONS 5 [sym_ppDirective];
   ACTIONS 3 [sym_comment]; ACTIONS 861 [sym_ppFragmentExpr; sym__literalStringMultiline];
   ACTIONS 871 [sym_identifier]; ACTIONS 861 [sym_kDefault; sym_kNodefault; sym_kDispId];
   ACTIONS 874 [sym_kGeneric]; ACTIONS 861 [sym_kSpecialize; sym_kOperator; sym_kPublic;
   sym_kStatic; sym_kVirtual; sym_kAbstract; sym_kDynamic; sym_kOverride; sym_kOverload;
   sym_kReintroduce; sym_kStdcall; sym_kCdecl; sym_kCppdecl; sym_kPascal; sym_kRegister;
   sym_kMwpascal; sym_kMessage; sym_kDeprecated; sym_kExperimental; sym_kPlatform;
   sym_kUnimplemented; sym_kCvar; sym_kExport; sym_kFar; sym_kNear; sym_kSafecall;
   sym_kAssembler; sym_kNostackframe; sym_kInterrupt; sym_kNoreturn; sym_kIocheck; sym_kLocal;
   sym_kHardfloat; sym_kSoftfloat; sym_kMs_abi_default; sym_kMs_abi_cdecl; sym_kSaveregisters;
   sym_kSysv_abi_default; sym_kSysv_abi_cdecl; sym_kVectorcall; sym_kVarargs; sym_kWinapi;
   sym_kAlias; sym_kAsm; sym_kBegin; sym_kCase; sym_kClass; sym_kConst; sym_kConstructor;
   sym_kDestructor; sym_kExports; sym_kFor; sym_kFunction; sym_kGoto; sym_kIf; sym_kInherited;
   sym_kLabel; sym_kNil; sym_kNot; sym_kProcedure; sym_kProperty; sym_kRaise; sym_kRepeat;
   sym_kResourcestring; sym_kString; sym_kThreadvar; sym_kTry; sym_kType; sym_kUses; sym_kVar;
   sym_kWhile; sym_kWith]].

(** State 164. *)
Definition ts_parse_table_164 : parse_row :=
  [STATE 6061 [sym_if]; STATE 6122 [sym_ifElse; sym_while; sym_repeat; sym_for; sym_foreach;
   sym_try; sym_case; sym_block; sym_asm; sym_with; sym_raise; sym_statement; sym_goto;
   sym__statement]; STATE 13608 [sym_ifTr; sym_ifElseTr; sym_whileTr; sym_repeatTr; sym_forTr;
   sym_foreachTr; sym_tryTr; sym_caseTr]; STATE 13949 [sym_blockTr]; STATE 13608 [sym_asmTr;
   sym_withTr; sym_raiseTr; sym_statementTr; sym_gotoTr; sym__statementTr];
   STATE 12950 [sym_assignment]; STATE 11871 [sym_varAssignDef]; STATE 12950 [sym_varDef;
   sym_constDef]; STATE 6126 [sym_label]; STATE 13608 [sym__statementsTr];
   STATE 13509 [sym_statementsTr]; STATE 7879 [sym__expr; sym_exprConditional];
   STATE 7259 [sym__ref; sym_lambda; sym_inherited; sym_exprDot; sym_exprDeref; sym_exprAs;
   sym_exprTpl; sym_exprSubscript; sym_exprCall]; STATE 7879 [sym_exprBinary; sym_exprUnary];
   STATE 7259 [sym_exprParens; sym_exprBrackets; sym__literal; sym_literalString];
   STATE 6541 [sym__literalString; sym_literalChar]; STATE 7259 [sym_literalNumber];
   STATE 7426 [sym__literalInt; sym__literalFloat]; STATE 1382 [sym__ppIf];
   STATE 6122 [sym__ppStatementBlock]; STATE 11556 [aux_sym_labeledStatement_repeat1];
   STATE 862 [aux_sym__statementsTr_repeat1]; STATE 6541 [aux_sym_literalString_repeat1];
   ACTIONS 671 [anon_sym_SEMI]; ACTIONS 673 [anon_sym_LBRACK]; ACTIONS 675 [anon_sym_LPAREN];
   ACTIONS 677 [aux_sym__literalString_token1]; ACTIONS 679 [anon_sym_POUND];
   ACTIONS 681 [aux_sym__literalInt_token1]; ACTIONS 683 [aux_sym__literalInt_token2;
   aux_sym__literalInt_token3]; ACTIONS 681 [aux_sym__literalFloat_token1];
   ACTIONS 411 [aux_sym_ppUsesBlock_token1]; ACTIONS 685 [sym_kAdd; sym_kSub];
   ACTIONS 687 [sym_kAt]; ACTIONS 689 [sym_kTrue; sym_kFalse]; ACTIONS 691 [sym_labelNumber];
   ACTIONS 3 [sym__space]; ACTIONS 5 [sym_ppDirective]; ACTIONS 3 [sym_comment];
   ACTIONS 689 [sym_ppFragmentExpr]; ACTIONS 671 [sym_ppFragmentStmt];
   ACTIONS 677 [sym__literalStringMultiline]; ACTIONS 693 [sym_identifier];
   ACTIONS 695 [sym_kSpecialize]; ACTIONS 697 [sym_kAsm]; ACTIONS 699 [sym_kBegin];
   ACTIONS 701 [sym_kCase]; ACTIONS 703 [sym_kConst]; ACTIONS 877 [sym_kExcept];
   ACTIONS 879 [sym_kFinally]; ACTIONS 709 [sym_kFor]; ACTIONS 711 [sym_kFunction];
   ACTIONS 713 [sym_kGoto]; ACTIONS 715 [sym_kIf]; ACTIONS 717 [sym_kInherited];
   ACTIONS 689 [sym_kNil]; ACTIONS 687 [sym_kNot]; ACTIONS 711 [sym_kProcedure];
   ACTIONS 719 [sym_kRaise]; ACTIONS 721 [sym_kRepeat]; ACTIONS 723 [sym_kString];
   ACTIONS 725 [sym_kTry]; ACTIONS 727 [sym_kVar]; ACTIONS 729 [sym_kWhile];
   ACTIONS 731 [sym_kWith]].

(** State 165. *)
Definition ts_parse_table_165 : parse_row :=
  [STATE 6061 [sym_if]; STATE 6122 [sym_ifElse; sym_while; sym_repeat; sym_for; sym_foreach;
   sym_try; sym_case; sym_block; sym_asm; sym_with; sym_raise; sym_statement; sym_goto;
   sym__statement]; STATE 13608 [sym_ifTr; sym_ifElseTr; sym_whileTr; sym_repeatTr; sym_forTr;
   sym_foreachTr; sym_tryTr; sym_caseTr]; STATE 13949 [sym_blockTr]; STATE 13608 [sym_asmTr;
   sym_withTr; sym_raiseTr; sym_statementTr; sym_gotoTr; sym__statementTr];
   STATE 12950 [sym_assignment]; STATE 11871 [sym_varAssignDef]; STATE 12950 [sym_varDef;
   sym_constDef]; STATE 6126 [sym_label]; STATE 13608 [sym__statementsTr];
   STATE 13520 [sym_statementsTr]; STATE 7879 [sym__expr; sym_exprConditional];
   STATE 7259 [sym__ref; sym_lambda; sym_inherited; sym_exprDot; sym_exprDeref; sym_exprAs;
   sym_exprTpl; sym_exprSubscript; sym_exprCall]; STATE 7879 [sym_exprBinary; sym_exprUnary];
   STATE 7259 [sym_exprParens; sym_exprBrackets; sym__literal; sym_literalString];
   STATE 6541 [sym__literalString; sym_literalChar]; STATE 7259 [sym_literalNumber];
   STATE 7426 [sym__literalInt; sym__literalFloat]; STATE 1382 [sym__ppIf];
   STATE 6122 [sym__ppStatementBlock]; STATE 11556 [aux_sym_labeledStatement_repeat1];
   STATE 862 [aux_sym__statementsTr_repeat1]; STATE 6541 [aux_sym_literalString_repeat1];
   ACTIONS 671 [anon_sym_SEMI]; ACTIONS 673 [anon_sym_LBRACK]; ACTIONS 675 [anon_sym_LPAREN];
   ACTIONS 677 [aux_sym__literalString_token1]; ACTIONS 679 [anon_sym_POUND];
   ACTIONS 681 [aux_sym__literalInt_token1]; ACTIONS 683 [aux_sym__literalInt_token2;
   aux_sym__literalInt_token3]; ACTIONS 681 [aux_sym__literalFloat_token1];
   ACTIONS 411 [aux_sym_ppUsesBlock_token1]; ACTIONS 685 [sym_kAdd; sym_kSub];
   ACTIONS 687 [sym_kAt]; ACTIONS 689 [sym_kTrue; sym_kFalse]; ACTIONS 691 [sym_labelNumber];
   ACTIONS 3 [sym__space]; ACTIONS 5 [sym_ppDirective]; ACTIONS 3 [sym_comment];
   ACTIONS 689 [sym_ppFragmentExpr]; ACTIONS 671 [sym_ppFragmentStmt];
   ACTIONS 677 [sym__literalStringMultiline]; ACTIONS 693 [sym_identifier];
   ACTIONS 695 [sym_kSpecialize]; ACTIONS 697 [sym_kAsm]; ACTIONS 699 [sym_kBegin];
   ACTIONS 701 [sym_kCase]; ACTIONS 703 [sym_kConst]; ACTIONS 881 [sym_kExcept];
   ACTIONS 883 [sym_kFinally]; ACTIONS 709 [sym_kFor]; ACTIONS 711 [sym_kFunction];
   ACTIONS 713 [sym_kGoto]; ACTIONS 715 [sym_kIf]; ACTIONS 717 [sym_kInherited];
   ACTIONS 689 [sym_kNil]; ACTIONS 687 [sym_kNot]; ACTIONS 711 [sym_kProcedure];
   ACTIONS 719 [sym_kRaise]; ACTIONS 721 [sym_kRepeat]; ACTIONS 723 [sym_kString];
   ACTIONS 725 [sym_kTry]; ACTIONS 727 [sym_kVar]; ACTIONS 729 [sym_kWhile];
   ACTIONS 731 [sym_kWith]].

(** State 166. *)
Definition ts_parse_table_166 : parse_row :=
  [STATE 6061 [sym_if]; STATE 6122 [sym_ifElse; sym_while; sym_repeat; sym_for; sym_foreach;
   sym_try; sym_case; sym_block; sym_asm; sym_with; sym_raise; sym_statement; sym_goto;
   sym__statement]; STATE 13608 [sym_ifTr; sym_ifElseTr; sym_whileTr; sym_repeatTr; sym_forTr;
   sym_foreachTr; sym_tryTr; sym_caseTr]; STATE 13949 [sym_blockTr]; STATE 13608 [sym_asmTr;
   sym_withTr; sym_raiseTr; sym_statementTr; sym_gotoTr; sym__statementTr];
   STATE 12950 [sym_assignment]; STATE 11871 [sym_varAssignDef]; STATE 12950 [sym_varDef;
   sym_constDef]; STATE 6126 [sym_label]; STATE 13608 [sym__statementsTr];
   STATE 13534 [sym_statementsTr]; STATE 7879 [sym__expr; sym_exprConditional];
   STATE 7259 [sym__ref; sym_lambda; sym_inherited; sym_exprDot; sym_exprDeref; sym_exprAs;
   sym_exprTpl; sym_exprSubscript; sym_exprCall]; STATE 7879 [sym_exprBinary; sym_exprUnary];
   STATE 7259 [sym_exprParens; sym_exprBrackets; sym__literal; sym_literalString];
   STATE 6541 [sym__literalString; sym_literalChar]; STATE 7259 [sym_literalNumber];
   STATE 7426 [sym__literalInt; sym__literalFloat]; STATE 1382 [sym__ppIf];
   STATE 6122 [sym__ppStatementBlock]; STATE 11556 [aux_sym_labeledStatement_repeat1];
   STATE 862 [aux_sym__statementsTr_repeat1]; STATE 6541 [aux_sym_literalString_repeat1];
   ACTIONS 671 [anon_sym_SEMI]; ACTIONS 673 [anon_sym_LBRACK]; ACTIONS 675 [anon_sym_LPAREN];
   ACTIONS 677 [aux_sym__literalString_token1]; ACTIONS 679 [anon_sym_POUND];
   ACTIONS 681 [aux_sym__literalInt_token1]; ACTIONS 683 [aux_sym__literalInt_token2;
   aux_sym__literalInt_token3]; ACTIONS 681 [aux_sym__literalFloat_token1];
   ACTIONS 411 [aux_sym_ppUsesBlock_token1]; ACTIONS 685 [sym_kAdd; sym_kSub];
   ACTIONS 687 [sym_kAt]; ACTIONS 689 [sym_kTrue; sym_kFalse]; ACTIONS 691 [sym_labelNumber];
   ACTIONS 3 [sym__space]; ACTIONS 5 [sym_ppDirective]; ACTIONS 3 [sym_comment];
   ACTIONS 689 [sym_ppFragmentExpr]; ACTIONS 671 [sym_ppFragmentStmt];
   ACTIONS 677 [sym__literalStringMultiline]; ACTIONS 693 [sym_identifier];
   ACTIONS 695 [sym_kSpecialize]; ACTIONS 697 [sym_kAsm]; ACTIONS 699 [sym_kBegin];
   ACTIONS 701 [sym_kCase]; ACTIONS 703 [sym_kConst]; ACTIONS 885 [sym_kExcept];
   ACTIONS 887 [sym_kFinally]; ACTIONS 709 [sym_kFor]; ACTIONS 711 [sym_kFunction];
   ACTIONS 713 [sym_kGoto]; ACTIONS 715 [sym_kIf]; ACTIONS 717 [sym_kInherited];
   ACTIONS 689 [sym_kNil]; ACTIONS 687 [sym_kNot]; ACTIONS 711 [sym_kProcedure];
   ACTIONS 719 [sym_kRaise]; ACTIONS 721 [sym_kRepeat]; ACTIONS 723 [sym_kString];
   ACTIONS 725 [sym_kTry]; ACTIONS 727 [sym_kVar]; ACTIONS 729 [sym_kWhile];
   ACTIONS 731 [sym_kWith]].

(** State 167. *)
Definition ts_parse_table_167 : parse_row :=
  [STATE 6061 [sym_if]; STATE 6122 [sym_ifElse; sym_while; sym_repeat; sym_for; sym_foreach;
   sym_try; sym_case; sym_block; sym_asm; sym_with; sym_raise; sym_statement; sym_goto;
   sym__statement]; STATE 13608 [sym_ifTr; sym_ifElseTr; sym_whileTr; sym_repeatTr; sym_forTr;
   sym_foreachTr; sym_tryTr; sym_caseTr]; STATE 13949 [sym_blockTr]; STATE 13608 [sym_asmTr;
   sym_withTr; sym_raiseTr; sym_statementTr; sym_gotoTr; sym__statementTr];
   STATE 12950 [sym_assignment]; STATE 11871 [sym_varAssignDef]; STATE 12950 [sym_varDef;
   sym_constDef]; STATE 6126 [sym_label]; STATE 13608 [sym__statementsTr];
   STATE 13549 [sym_statementsTr]; STATE 7879 [sym__expr; sym_exprConditional];
   STATE 7259 [sym__ref; sym_lambda; sym_inherited; sym_exprDot; sym_exprDeref; sym_exprAs;
   sym_exprTpl; sym_exprSubscript; sym_exprCall]; STATE 7879 [sym_exprBinary; sym_exprUnary];
   STATE 7259 [sym_exprParens; sym_exprBrackets; sym__literal; sym_literalString];
   STATE 6541 [sym__literalString; sym_literalChar]; STATE 7259 [sym_literalNumber];
   STATE 7426 [sym__literalInt; sym__literalFloat]; STATE 1382 [sym__ppIf];
   STATE 6122 [sym__ppStatementBlock]; STATE 11556 [aux_sym_labeledStatement_repeat1];
   STATE 862 [aux_sym__statementsTr_repeat1]; STATE 6541 [aux_sym_literalString_repeat1];
   ACTIONS 671 [anon_sym_SEMI]; ACTIONS 673 [anon_sym_LBRACK]; ACTIONS 675 [anon_sym_LPAREN];
   ACTIONS 677 [aux_sym__literalString_token1]; ACTIONS 679 [anon_sym_POUND];
   ACTIONS 681 [aux_sym__literalInt_token1]; ACTIONS 683 [aux_sym__literalInt_token2;
   aux_sym__literalInt_token3]; ACTIONS 681 [aux_sym__literalFloat_token1];
   ACTIONS 411 [aux_sym_ppUsesBlock_token1]; ACTIONS 685 [sym_kAdd; sym_kSub];
   ACTIONS 687 [sym_kAt]; ACTIONS 689 [sym_kTrue; sym_kFalse]; ACTIONS 691 [sym_labelNumber];
   ACTIONS 3 [sym__space]; ACTIONS 5 [sym_ppDirective]; ACTIONS 3 [sym_comment];
   ACTIONS 689 [sym_ppFragmentExpr]; ACTIONS 671 [sym_ppFragmentStmt];
   ACTIONS 677 [sym__literalStringMultiline]; ACTIONS 693 [sym_identifier];
   ACTIONS 695 [sym_kSpecialize]; ACTIONS 697 [sym_kAsm]; ACTIONS 699 [sym_kBegin];
   ACTIONS 701 [sym_kCase]; ACTIONS 703 [sym_kConst]; ACTIONS 889 [sym_kExcept];
   ACTIONS 891 [sym_kFinally]; ACTIONS 709 [sym_kFor]; ACTIONS 711 [sym_kFunction];
   ACTIONS 713 [sym_kGoto]; ACTIONS 715 [sym_kIf]; ACTIONS 717 [sym_kInherited];
   ACTIONS 689 [sym_kNil]; ACTIONS 687 [sym_kNot]; ACTIONS 711 [sym_kProcedure];
   ACTIONS 719 [sym_kRaise]; ACTIONS 721 [sym_kRepeat]; ACTIONS 723 [sym_kString];
   ACTIONS 725 [sym_kTry]; ACTIONS 727 [sym_kVar]; ACTIONS 729 [sym_kWhile];
   ACTIONS 731 [sym_kWith]].

(** State 168. *)
Definition ts_parse_table_168 : parse_row :=
  [STATE 6061 [sym_if]; STATE 6122 [sym_ifElse; sym_while; sym_repeat; sym_for; sym_foreach;
   sym_try; sym_case; sym_block; sym_asm; sym_with; sym_raise; sym_statement; sym_goto;
   sym__statement]; STATE 13608 [sym_ifTr; sym_ifElseTr; sym_whileTr; sym_repeatTr; sym_forTr;
   sym_foreachTr; sym_tryTr; sym_caseTr]; STATE 13949 [sym_blockTr]; STATE 13608 [sym_asmTr;
   sym_withTr; sym_raiseTr; sym_statementTr; sym_gotoTr; sym__statementTr];
   STATE 12950 [sym_assignment]; STATE 11871 [sym_varAssignDef]; STATE 12950 [sym_varDef;
   sym_constDef]; STATE 6126 [sym_label]; STATE 13608 [sym__statementsTr];
   STATE 13562 [sym_statementsTr]; STATE 7879 [sym__expr; sym_exprConditional];
   STATE 7259 [sym__ref; sym_lambda; sym_inherited; sym_exprDot; sym_exprDeref; sym_exprAs;
   sym_exprTpl; sym_exprSubscript; sym_exprCall]; STATE 7879 [sym_exprBinary; sym_exprUnary];
   STATE 7259 [sym_exprParens; sym_exprBrackets; sym__literal; sym_literalString];
   STATE 6541 [sym__literalString; sym_literalChar]; STATE 7259 [sym_literalNumber];
   STATE 7426 [sym__literalInt; sym__literalFloat]; STATE 1382 [sym__ppIf];
   STATE 6122 [sym__ppStatementBlock]; STATE 11556 [aux_sym_labeledStatement_repeat1];
   STATE 862 [aux_sym__statementsTr_repeat1]; STATE 6541 [aux_sym_literalString_repeat1];
   ACTIONS 671 [anon_sym_SEMI]; ACTIONS 673 [anon_sym_LBRACK]; ACTIONS 675 [anon_sym_LPAREN];
   ACTIONS 677 [aux_sym__literalString_token1]; ACTIONS 679 [anon_sym_POUND];
   ACTIONS 681 [aux_sym__literalInt_token1]; ACTIONS 683 [aux_sym__literalInt_token2;
   aux_sym__literalInt_token3]; ACTIONS 681 [aux_sym__literalFloat_token1];
   ACTIONS 411 [aux_sym_ppUsesBlock_token1]; ACTIONS 685 [sym_kAdd; sym_kSub];
   ACTIONS 687 [sym_kAt]; ACTIONS 689 [sym_kTrue; sym_kFalse]; ACTIONS 691 [sym_labelNumber];
   ACTIONS 3 [sym__space]; ACTIONS 5 [sym_ppDirective]; ACTIONS 3 [sym_comment];
   ACTIONS 689 [sym_ppFragmentExpr]; ACTIONS 671 [sym_ppFragmentStmt];
   ACTIONS 677 [sym__literalStringMultiline]; ACTIONS 693 [sym_identifier];
   ACTIONS 695 [sym_kSpecialize]; ACTIONS 697 [sym_kAsm]; ACTIONS 699 [sym_kBegin];
   ACTIONS 701 [sym_kCase]; ACTIONS 703 [sym_kConst]; ACTIONS 893 [sym_kExcept];
   ACTIONS 895 [sym_kFinally]; ACTIONS 709 [sym_kFor]; ACTIONS 711 [sym_kFunction];
   ACTIONS 713 [sym_kGoto]; ACTIONS 715 [sym_kIf]; ACTIONS 717 [sym_kInherited];
   ACTIONS 689 [sym_kNil]; ACTIONS 687 [sym_kNot]; ACTIONS 711 [sym_kProcedure];
   ACTIONS 719 [sym_kRaise]; ACTIONS 721 [sym_kRepeat]; ACTIONS 723 [sym_kString];
   ACTIONS 725 [sym_kTry]; ACTIONS 727 [sym_kVar]; ACTIONS 729 [sym_kWhile];
   ACTIONS 731 [sym_kWith]].

(** State 169. *)
Definition ts_parse_table_169 : parse_row :=
  [STATE 6061 [sym_if]; STATE 6122 [sym_ifElse; sym_while; sym_repeat; sym_for; sym_foreach;
   sym_try; sym_case; sym_block; sym_asm; sym_with; sym_raise; sym_statement; sym_goto;
   sym__statement]; STATE 13608 [sym_ifTr; sym_ifElseTr; sym_whileTr; sym_repeatTr; sym_forTr;
   sym_foreachTr; sym_tryTr; sym_caseTr]; STATE 13949 [sym_blockTr]; STATE 13608 [sym_asmTr;
   sym_withTr; sym_raiseTr; sym_statementTr; sym_gotoTr; sym__statementTr];
   STATE 12950 [sym_assignment]; STATE 11871 [sym_varAssignDef]; STATE 12950 [sym_varDef;
   sym_constDef]; STATE 6126 [sym_label]; STATE 13608 [sym__statementsTr];
   STATE 13688 [sym_statementsTr]; STATE 7879 [sym__expr; sym_exprConditional];
   STATE 7259 [sym__ref; sym_lambda; sym_inherited; sym_exprDot; sym_exprDeref; sym_exprAs;
   sym_exprTpl; sym_exprSubscript; sym_exprCall]; STATE 7879 [sym_exprBinary; sym_exprUnary];
   STATE 7259 [sym_exprParens; sym_exprBrackets; sym__literal; sym_literalString];
   STATE 6541 [sym__literalString; sym_literalChar]; STATE 7259 [sym_literalNumber];
   STATE 7426 [sym__literalInt; sym__literalFloat]; STATE 1382 [sym__ppIf];
   STATE 6122 [sym__ppStatementBlock]; STATE 11556 [aux_sym_labeledStatement_repeat1];
   STATE 862 [aux_sym__statementsTr_repeat1]; STATE 6541 [aux_sym_literalString_repeat1];
   ACTIONS 671 [anon_sym_SEMI]; ACTIONS 673 [anon_sym_LBRACK]; ACTIONS 675 [anon_sym_LPAREN];
   ACTIONS 677 [aux_sym__literalString_token1]; ACTIONS 679 [anon_sym_POUND];
   ACTIONS 681 [aux_sym__literalInt_token1]; ACTIONS 683 [aux_sym__literalInt_token2;
   aux_sym__literalInt_token3]; ACTIONS 681 [aux_sym__literalFloat_token1];
   ACTIONS 411 [aux_sym_ppUsesBlock_token1]; ACTIONS 685 [sym_kAdd; sym_kSub];
   ACTIONS 687 [sym_kAt]; ACTIONS 689 [sym_kTrue; sym_kFalse]; ACTIONS 691 [sym_labelNumber];
   ACTIONS 3 [sym__space]; ACTIONS 5 [sym_ppDirective]; ACTIONS 3 [sym_comment];
   ACTIONS 689 [sym_ppFragmentExpr]; ACTIONS 671 [sym_ppFragmentStmt];
   ACTIONS 677 [sym__literalStringMultiline]; ACTIONS 693 [sym_identifier];
   ACTIONS 695 [sym_kSpecialize]; ACTIONS 697 [sym_kAsm]; ACTIONS 699 [sym_kBegin];
   ACTIONS 701 [sym_kCase]; ACTIONS 703 [sym_kConst]; ACTIONS 897 [sym_kExcept];
   ACTIONS 899 [sym_kFinally]; ACTIONS 709 [sym_kFor]; ACTIONS 711 [sym_kFunction];
   ACTIONS 713 [sym_kGoto]; ACTIONS 715 [sym_kIf]; ACTIONS 717 [sym_kInherited];
   ACTIONS 689 [sym_kNil]; ACTIONS 687 [sym_kNot]; ACTIONS 711 [sym_kProcedure];
   ACTIONS 719 [sym_kRaise]; ACTIONS 721 [sym_kRepeat]; ACTIONS 723 [sym_kString];
   ACTIONS 725 [sym_kTry]; ACTIONS 727 [sym_kVar]; ACTIONS 729 [sym_kWhile];
   ACTIONS 731 [sym_kWith]].

(** State 170. *)
Definition ts_parse_table_170 : parse_row :=
  [STATE 6061 [sym_if]; STATE 6122 [sym_ifElse; sym_while; sym_repeat; sym_for; sym_foreach;
   sym_try; sym_case; sym_block; sym_asm; sym_with; sym_raise; sym_statement; sym_goto;
   sym__statement]; STATE 13608 [sym_ifTr; sym_ifElseTr; sym_whileTr; sym_repeatTr; sym_forTr;
   sym_foreachTr; sym_tryTr; sym_caseTr]; STATE 13949 [sym_blockTr]; STATE 13608 [sym_asmTr;
   sym_withTr; sym_raiseTr; sym_statementTr; sym_gotoTr; sym__statementTr];
   STATE 12950 [sym_assignment]; STATE 11871 [sym_varAssignDef]; STATE 12950 [sym_varDef;
   sym_constDef]; STATE 6126 [sym_label]; STATE 13608 [sym__statementsTr];
   STATE 13743 [sym_statementsTr]; STATE 7879 [sym__expr; sym_exprConditional];
   STATE 7259 [sym__ref; sym_lambda; sym_inherited; sym_exprDot; sym_exprDeref; sym_exprAs;
   sym_exprTpl; sym_exprSubscript; sym_exprCall]; STATE 7879 [sym_exprBinary; sym_exprUnary];
   STATE 7259 [sym_exprParens; sym_exprBrackets; sym__literal; sym_literalString];
   STATE 6541 [sym__literalString; sym_literalChar]; STATE 7259 [sym_literalNumber];
   STATE 7426 [sym__literalInt; sym__literalFloat]; STATE 1382 [sym__ppIf];
   STATE 6122 [sym__ppStatementBlock]; STATE 11556 [aux_sym_labeledStatement_repeat1];
   STATE 862 [aux_sym__statementsTr_repeat1]; STATE 6541 [aux_sym_literalString_repeat1];
   ACTIONS 671 [anon_sym_SEMI]; ACTIONS 673 [anon_sym_LBRACK]; ACTIONS 675 [anon_sym_LPAREN];
   ACTIONS 677 [aux_sym__literalString_token1]; ACTIONS 679 [anon_sym_POUND];
   ACTIONS 681 [aux_sym__literalInt_token1]; ACTIONS 683 [aux_sym__literalInt_token2;
   aux_sym__literalInt_token3]; ACTIONS 681 [aux_sym__literalFloat_token1];
   ACTIONS 411 [aux_sym_ppUsesBlock_token1]; ACTIONS 685 [sym_kAdd; sym_kSub];
   ACTIONS 687 [sym_kAt]; ACTIONS 689 [sym_kTrue; sym_kFalse]; ACTIONS 691 [sym_labelNumber];
   ACTIONS 3 [sym__space]; ACTIONS 5 [sym_ppDirective]; ACTIONS 3 [sym_comment];
   ACTIONS 689 [sym_ppFragmentExpr]; ACTIONS 671 [sym_ppFragmentStmt];
   ACTIONS 677 [sym__literalStringMultiline]; ACTIONS 693 [sym_identifier];
   ACTIONS 695 [sym_kSpecialize]; ACTIONS 697 [sym_kAsm]; ACTIONS 699 [sym_kBegin];
   ACTIONS 701 [sym_kCase]; ACTIONS 703 [sym_kConst]; ACTIONS 901 [sym_kExcept];
   ACTIONS 903 [sym_kFinally]; ACTIONS 709 [sym_kFor]; ACTIONS 711 [sym_kFunction];
   ACTIONS 713 [sym_kGoto]; ACTIONS 715 [sym_kIf]; ACTIONS 717 [sym_kInherited];
   ACTIONS 689 [sym_kNil]; ACTIONS 687 [sym_kNot]; ACTIONS 711 [sym_kProcedure];
   ACTIONS 719 [sym_kRaise]; ACTIONS 721 [sym_kRepeat]; ACTIONS 723 [sym_kString];
   ACTIONS 725 [sym_kTry]; ACTIONS 727 [sym_kVar]; ACTIONS 729 [sym_kWhile];
   ACTIONS 731 [sym_kWith]].

(** State 171. *)
Definition ts_parse_table_171 : parse_row :=
  [STATE 6061 [sym_if]; STATE 6122 [sym_ifElse; sym_while; sym_repeat; sym_for; sym_foreach;
   sym_try; sym_case; sym_block; sym_asm; sym_with; sym_raise; sym_statement; sym_goto;
   sym__statement]; STATE 13608 [sym_ifTr; sym_ifElseTr; sym_whileTr; sym_repeatTr; sym_forTr;
   sym_foreachTr; sym_tryTr; sym_caseTr]; STATE 13949 [sym_blockTr]; STATE 13608 [sym_asmTr;
   sym_withTr; sym_raiseTr; sym_statementTr; sym_gotoTr; sym__statementTr];
   STATE 12950 [sym_assignment]; STATE 11871 [sym_varAssignDef]; STATE 12950 [sym_varDef;
   sym_constDef]; STATE 6126 [sym_label]; STATE 13608 [sym__statementsTr];
   STATE 13775 [sym_statementsTr]; STATE 7879 [sym__expr; sym_exprConditional];
   STATE 7259 [sym__ref; sym_lambda; sym_inherited; sym_exprDot; sym_exprDeref; sym_exprAs;
   sym_exprTpl; sym_exprSubscript; sym_exprCall]; STATE 7879 [sym_exprBinary; sym_exprUnary];
   STATE 7259 [sym_exprParens; sym_exprBrackets; sym__literal; sym_literalString];
   STATE 6541 [sym__literalString; sym_literalChar]; STATE 7259 [sym_literalNumber];
   STATE 7426 [sym__literalInt; sym__literalFloat]; STATE 1382 [sym__ppIf];
   STATE 6122 [sym__ppStatementBlock]; STATE 11556 [aux_sym_labeledStatement_repeat1];
   STATE 862 [aux_sym__statementsTr_repeat1]; STATE 6541 [aux_sym_literalString_repeat1];
   ACTIONS 671 [anon_sym_SEMI]; ACTIONS 673 [anon_sym_LBRACK]; ACTIONS 675 [anon_sym_LPAREN];
   ACTIONS 677 [aux_sym__literalString_token1]; ACTIONS 679 [anon_sym_POUND];
   ACTIONS 681 [aux_sym__literalInt_token1]; ACTIONS 683 [aux_sym__literalInt_token2;
   aux_sym__literalInt_token3]; ACTIONS 681 [aux_sym__literalFloat_token1];
   ACTIONS 411 [aux_sym_ppUsesBlock_token1]; ACTIONS 685 [sym_kAdd; sym_kSub];
   ACTIONS 687 [sym_kAt]; ACTIONS 689 [sym_kTrue; sym_kFalse]; ACTIONS 691 [sym_labelNumber];
   ACTIONS 3 [sym__space]; ACTIONS 5 [sym_ppDirective]; ACTIONS 3 [sym_comment];
   ACTIONS 689 [sym_ppFragmentExpr]; ACTIONS 671 [sym_ppFragmentStmt];
   ACTIONS 677 [sym__literalStringMultiline]; ACTIONS 693 [sym_identifier];
   ACTIONS 695 [sym_kSpecialize]; ACTIONS 697 [sym_kAsm]; ACTIONS 699 [sym_kBegin];
   ACTIONS 701 [sym_kCase]; ACTIONS 703 [sym_kConst]; ACTIONS 905 [sym_kExcept];
   ACTIONS 907 [sym_kFinally]; ACTIONS 709 [sym_kFor]; ACTIONS 711 [sym_kFunction];
   ACTIONS 713 [sym_kGoto]; ACTIONS 715 [sym_kIf]; ACTIONS 717 [sym_kInherited];
   ACTIONS 689 [sym_kNil]; ACTIONS 687 [sym_kNot]; ACTIONS 711 [sym_kProcedure];
   ACTIONS 719 [sym_kRaise]; ACTIONS 721 [sym_kRepeat]; ACTIONS 723 [sym_kString];
   ACTIONS 725 [sym_kTry]; ACTIONS 727 [sym_kVar]; ACTIONS 729 [sym_kWhile];
   ACTIONS 731 [sym_kWith]].

(** State 172. *)
Definition ts_parse_table_172 : parse_row :=
  [STATE 6061 [sym_if]; STATE 6122 [sym_ifElse; sym_while; sym_repeat; sym_for; sym_foreach;
   sym_try; sym_case; sym_block; sym_asm; sym_with; sym_raise; sym_statement; sym_goto;
   sym__statement]; STATE 13608 [sym_ifTr; sym_ifElseTr; sym_whileTr; sym_repeatTr; sym_forTr;
   sym_foreachTr; sym_tryTr; sym_caseTr]; STATE 13949 [sym_blockTr]; STATE 13608 [sym_asmTr;
   sym_withTr; sym_raiseTr; sym_statementTr; sym_gotoTr; sym__statementTr];
   STATE 12950 [sym_assignment]; STATE 11871 [sym_varAssignDef]; STATE 12950 [sym_varDef;
   sym_constDef]; STATE 6126 [sym_label]; STATE 13608 [sym__statementsTr];
   STATE 13801 [sym_statementsTr]; STATE 7879 [sym__expr; sym_exprConditional];
   STATE 7259 [sym__ref; sym_lambda; sym_inherited; sym_exprDot; sym_exprDeref; sym_exprAs;
   sym_exprTpl; sym_exprSubscript; sym_exprCall]; STATE 7879 [sym_exprBinary; sym_exprUnary];
   STATE 7259 [sym_exprParens; sym_exprBrackets; sym__literal; sym_literalString];
   STATE 6541 [sym__literalString; sym_literalChar]; STATE 7259 [sym_literalNumber];
   STATE 7426 [sym__literalInt; sym__literalFloat]; STATE 1382 [sym__ppIf];
   STATE 6122 [sym__ppStatementBlock]; STATE 11556 [aux_sym_labeledStatement_repeat1];
   STATE 862 [aux_sym__statementsTr_repeat1]; STATE 6541 [aux_sym_literalString_repeat1];
   ACTIONS 671 [anon_sym_SEMI]; ACTIONS 673 [anon_sym_LBRACK]; ACTIONS 675 [anon_sym_LPAREN];
   ACTIONS 677 [aux_sym__literalString_token1]; ACTIONS 679 [anon_sym_POUND];
   ACTIONS 681 [aux_sym__literalInt_token1]; ACTIONS 683 [aux_sym__literalInt_token2;
   aux_sym__literalInt_token3]; ACTIONS 681 [aux_sym__literalFloat_token1];
   ACTIONS 411 [aux_sym_ppUsesBlock_token1]; ACTIONS 685 [sym_kAdd; sym_kSub];
   ACTIONS 687 [sym_kAt]; ACTIONS 689 [sym_kTrue; sym_kFalse]; ACTIONS 691 [sym_labelNumber];
   ACTIONS 3 [sym__space]; ACTIONS 5 [sym_ppDirective]; ACTIONS 3 [sym_comment];
   ACTIONS 689 [sym_ppFragmentExpr]; ACTIONS 671 [sym_ppFragmentStmt];
   ACTIONS 677 [sym__literalStringMultiline]; ACTIONS 693 [sym_identifier];
   ACTIONS 695 [sym_kSpecialize]; ACTIONS 697 [sym_kAsm]; ACTIONS 699 [sym_kBegin];
   ACTIONS 701 [sym_kCase]; ACTIONS 703 [sym_kConst]; ACTIONS 909 [sym_kExcept];
   ACTIONS 911 [sym_kFinally]; ACTIONS 709 [sym_kFor]; ACTIONS 711 [sym_kFunction];
   ACTIONS 713 [sym_kGoto]; ACTIONS 715 [sym_kIf]; ACTIONS 717 [sym_kInherited];
   ACTIONS 689 [sym_kNil]; ACTIONS 687 [sym_kNot]; ACTIONS 711 [sym_kProcedure];
   ACTIONS 719 [sym_kRaise]; ACTIONS 721 [sym_kRepeat]; ACTIONS 723 [sym_kString];
   ACTIONS 725 [sym_kTry]; ACTIONS 727 [sym_kVar]; ACTIONS 729 [sym_kWhile];
   ACTIONS 731 [sym_kWith]].

(** State 173. *)
Definition ts_parse_table_173 : parse_row :=
  [STATE 6061 [sym_if]; STATE 6122 [sym_ifElse; sym_while; sym_repeat; sym_for; sym_foreach;
   sym_try; sym_case; sym_block; sym_asm; sym_with; sym_raise; sym_statement; sym_goto;
   sym__statement]; STATE 13608 [sym_ifTr; sym_ifElseTr; sym_whileTr; sym_repeatTr; sym_forTr;
   sym_foreachTr; sym_tryTr; sym_caseTr]; STATE 13949 [sym_blockTr]; STATE 13608 [sym_asmTr;
   sym_withTr; sym_raiseTr; sym_statementTr; sym_gotoTr; sym__statementTr];
   STATE 12950 [sym_assignment]; STATE 11871 [sym_varAssignDef]; STATE 12950 [sym_varDef;
   sym_constDef]; STATE 6126 [sym_label]; STATE 13608 [sym__statementsTr];
   STATE 13830 [sym_statementsTr]; STATE 7879 [sym__expr; sym_exprConditional];
   STATE 7259 [sym__ref; sym_lambda; sym_inherited; sym_exprDot; sym_exprDeref; sym_exprAs;
   sym_exprTpl; sym_exprSubscript; sym_exprCall]; STATE 7879 [sym_exprBinary; sym_exprUnary];
   STATE 7259 [sym_exprParens; sym_exprBrackets; sym__literal; sym_literalString];
   STATE 6541 [sym__literalString; sym_literalChar]; STATE 7259 [sym_literalNumber];
   STATE 7426 [sym__literalInt; sym__literalFloat]; STATE 1382 [sym__ppIf];
   STATE 6122 [sym__ppStatementBlock]; STATE 11556 [aux_sym_labeledStatement_repeat1];
   STATE 862 [aux_sym__statementsTr_repeat1]; STATE 6541 [aux_sym_literalString_repeat1];
   ACTIONS 671 [anon_sym_SEMI]; ACTIONS 673 [anon_sym_LBRACK]; ACTIONS 675 [anon_sym_LPAREN];
   ACTIONS 677 [aux_sym__literalString_token1]; ACTIONS 679 [anon_sym_POUND];
   ACTIONS 681 [aux_sym__literalInt_token1]; ACTIONS 683 [aux_sym__literalInt_token2;
   aux_sym__literalInt_token3]; ACTIONS 681 [aux_sym__literalFloat_token1];
   ACTIONS 411 [aux_sym_ppUsesBlock_token1]; ACTIONS 685 [sym_kAdd; sym_kSub];
   ACTIONS 687 [sym_kAt]; ACTIONS 689 [sym_kTrue; sym_kFalse]; ACTIONS 691 [sym_labelNumber];
   ACTIONS 3 [sym__space]; ACTIONS 5 [sym_ppDirective]; ACTIONS 3 [sym_comment];
   ACTIONS 689 [sym_ppFragmentExpr]; ACTIONS 671 [sym_ppFragmentStmt];
   ACTIONS 677 [sym__literalStringMultiline]; ACTIONS 693 [sym_identifier];
   ACTIONS 695 [sym_kSpecialize]; ACTIONS 697 [sym_kAsm]; ACTIONS 699 [sym_kBegin];
   ACTIONS 701 [sym_kCase]; ACTIONS 703 [sym_kConst]; ACTIONS 913 [sym_kExcept];
   ACTIONS 915 [sym_kFinally]; ACTIONS 709 [sym_kFor]; ACTIONS 711 [sym_kFunction];
   ACTIONS 713 [sym_kGoto]; ACTIONS 715 [sym_kIf]; ACTIONS 717 [sym_kInherited];
   ACTIONS 689 [sym_kNil]; ACTIONS 687 [sym_kNot]; ACTIONS 711 [sym_kProcedure];
   ACTIONS 719 [sym_kRaise]; ACTIONS 721 [sym_kRepeat]; ACTIONS 723 [sym_kString];
   ACTIONS 725 [sym_kTry]; ACTIONS 727 [sym_kVar]; ACTIONS 729 [sym_kWhile];
   ACTIONS 731 [sym_kWith]].

(** State 174. *)
Definition ts_parse_table_174 : parse_row :=
  [STATE 6061 [sym_if]; STATE 6122 [sym_ifElse; sym_while; sym_repeat; sym_for; sym_foreach;
   sym_try; sym_case; sym_block; sym_asm; sym_with; sym_raise; sym_statement; sym_goto;
   sym__statement]; STATE 13608 [sym_ifTr; sym_ifElseTr; sym_whileTr; sym_repeatTr; sym_forTr;
   sym_foreachTr; sym_tryTr; sym_caseTr]; STATE 13949 [sym_blockTr]; STATE 13608 [sym_asmTr;
   sym_withTr; sym_raiseTr; sym_statementTr; sym_gotoTr; sym__statementTr];
   STATE 12950 [sym_assignment]; STATE 11871 [sym_varAssignDef]; STATE 12950 [sym_varDef;
   sym_constDef]; STATE 6126 [sym_label]; STATE 13608 [sym__statementsTr];
   STATE 13855 [sym_statementsTr]; STATE 7879 [sym__expr; sym_exprConditional];
   STATE 7259 [sym__ref; sym_lambda; sym_inherited; sym_exprDot; sym_exprDeref; sym_exprAs;
   sym_exprTpl; sym_exprSubscript; sym_exprCall]; STATE 7879 [sym_exprBinary; sym_exprUnary];
   STATE 7259 [sym_exprParens; sym_exprBrackets; sym__literal; sym_literalString];
   STATE 6541 [sym__literalString; sym_literalChar]; STATE 7259 [sym_literalNumber];
   STATE 7426 [sym__literalInt; sym__literalFloat]; STATE 1382 [sym__ppIf];
   STATE 6122 [sym__ppStatementBlock]; STATE 11556 [aux_sym_labeledStatement_repeat1];
   STATE 862 [aux_sym__statementsTr_repeat1]; STATE 6541 [aux_sym_literalString_repeat1];
   ACTIONS 671 [anon_sym_SEMI]; ACTIONS 673 [anon_sym_LBRACK]; ACTIONS 675 [anon_sym_LPAREN];
   ACTIONS 677 [aux_sym__literalString_token1]; ACTIONS 679 [anon_sym_POUND];
   ACTIONS 681 [aux_sym__literalInt_token1]; ACTIONS 683 [aux_sym__literalInt_token2;
   aux_sym__literalInt_token3]; ACTIONS 681 [aux_sym__literalFloat_token1];
   ACTIONS 411 [aux_sym_ppUsesBlock_token1]; ACTIONS 685 [sym_kAdd; sym_kSub];
   ACTIONS 687 [sym_kAt]; ACTIONS 689 [sym_kTrue; sym_kFalse]; ACTIONS 691 [sym_labelNumber];
   ACTIONS 3 [sym__space]; ACTIONS 5 [sym_ppDirective]; ACTIONS 3 [sym_comment];
   ACTIONS 689 [sym_ppFragmentExpr]; ACTIONS 671 [sym_ppFragmentStmt];
   ACTIONS 677 [sym__literalStringMultiline]; ACTIONS 693 [sym_identifier];
   ACTIONS 695 [sym_kSpecialize]; ACTIONS 697 [sym_kAsm]; ACTIONS 699 [sym_kBegin];
   ACTIONS 701 [sym_kCase]; ACTIONS 703 [sym_kConst]; ACTIONS 917 [sym_kExcept];
   ACTIONS 919 [sym_kFinally]; ACTIONS 709 [sym_kFor]; ACTIONS 711 [sym_kFunction];
   ACTIONS 713 [sym_kGoto]; ACTIONS 715 [sym_kIf]; ACTIONS 717 [sym_kInherited];
   ACTIONS 689 [sym_kNil]; ACTIONS 687 [sym_kNot]; ACTIONS 711 [sym_kProcedure];
   ACTIONS 719 [sym_kRaise]; ACTIONS 721 [sym_kRepeat]; ACTIONS 723 [sym_kString];
   ACTIONS 725 [sym_kTry]; ACTIONS 727 [sym_kVar]; ACTIONS 729 [sym_kWhile];
   ACTIONS 731 [sym_kWith]].

(** State 175. *)
Definition ts_parse_table_175 : parse_row :=
  [STATE 6061 [sym_if]; STATE 6122 [sym_ifElse; sym_while; sym_repeat; sym_for; sym_foreach;
   sym_try; sym_case; sym_block; sym_asm; sym_with; sym_raise; sym_statement; sym_goto;
   sym__statement]; STATE 13608 [sym_ifTr; sym_ifElseTr; sym_whileTr; sym_repeatTr; sym_forTr;
   sym_foreachTr; sym_tryTr; sym_caseTr]; STATE 13949 [sym_blockTr]; STATE 13608 [sym_asmTr;
   sym_withTr; sym_raiseTr; sym_statementTr; sym_gotoTr; sym__statementTr];
   STATE 12950 [sym_assignment]; STATE 11871 [sym_varAssignDef]; STATE 12950 [sym_varDef;
   sym_constDef]; STATE 6126 [sym_label]; STATE 13608 [sym__statementsTr];
   STATE 13356 [sym_statementsTr]; STATE 7879 [sym__expr; sym_exprConditional];
   STATE 7259 [sym__ref; sym_lambda; sym_inherited; sym_exprDot; sym_exprDeref; sym_exprAs;
   sym_exprTpl; sym_exprSubscript; sym_exprCall]; STATE 7879 [sym_exprBinary; sym_exprUnary];
   STATE 7259 [sym_exprParens; sym_exprBrackets; sym__literal; sym_literalString];
   STATE 6541 [sym__literalString; sym_literalChar]; STATE 7259 [sym_literalNumber];
   STATE 7426 [sym__literalInt; sym__literalFloat]; STATE 1382 [sym__ppIf];
   STATE 6122 [sym__ppStatementBlock]; STATE 11556 [aux_sym_labeledStatement_repeat1];
   STATE 862 [aux_sym__statementsTr_repeat1]; STATE 6541 [aux_sym_literalString_repeat1];
   ACTIONS 671 [anon_sym_SEMI]; ACTIONS 673 [anon_sym_LBRACK]; ACTIONS 675 [anon_sym_LPAREN];
   ACTIONS 677 [aux_sym__literalString_token1]; ACTIONS 679 [anon_sym_POUND];
   ACTIONS 681 [aux_sym__literalInt_token1]; ACTIONS 683 [aux_sym__literalInt_token2;
   aux_sym__literalInt_token3]; ACTIONS 681 [aux_sym__literalFloat_token1];
   ACTIONS 411 [aux_sym_ppUsesBlock_token1]; ACTIONS 685 [sym_kAdd; sym_kSub];
   ACTIONS 687 [sym_kAt]; ACTIONS 689 [sym_kTrue; sym_kFalse]; ACTIONS 691 [sym_labelNumber];
   ACTIONS 3 [sym__space]; ACTIONS 5 [sym_ppDirective]; ACTIONS 3 [sym_comment];
   ACTIONS 689 [sym_ppFragmentExpr]; ACTIONS 671 [sym_ppFragmentStmt];
   ACTIONS 677 [sym__literalStringMultiline]; ACTIONS 693 [sym_identifier];
   ACTIONS 695 [sym_kSpecialize]; ACTIONS 697 [sym_kAsm]; ACTIONS 699 [sym_kBegin];
   ACTIONS 701 [sym_kCase]; ACTIONS 703 [sym_kConst]; ACTIONS 921 [sym_kExcept];
   ACTIONS 923 [sym_kFinally]; ACTIONS 709 [sym_kFor]; ACTIONS 711 [sym_kFunction];
   ACTIONS 713 [sym_kGoto]; ACTIONS 715 [sym_kIf]; ACTIONS 717 [sym_kInherited];
   ACTIONS 689 [sym_kNil]; ACTIONS 687 [sym_kNot]; ACTIONS 711 [sym_kProcedure];
   ACTIONS 719 [sym_kRaise]; ACTIONS 721 [sym_kRepeat]; ACTIONS 723 [sym_kString];
   ACTIONS 725 [sym_kTry]; ACTIONS 727 [sym_kVar]; ACTIONS 729 [sym_kWhile];
   ACTIONS 731 [sym_kWith]].

(** State 176. *)
Definition ts_parse_table_176 : parse_row :=
  [STATE 6273 [sym_if]; STATE 6303 [sym_ifElse; sym_while; sym_repeat; sym_for; sym_foreach;
   sym_try; sym_case; sym_block; sym_asm; sym_with; sym_raise; sym_statement; sym_goto;
   sym__statement]; STATE 15875 [sym_ifTr; sym_ifElseTr; sym_whileTr; sym_repeatTr; sym_forTr;
   sym_foreachTr; sym_tryTr; sym_caseTr]; STATE 14967 [sym_blockTr]; STATE 15875 [sym_asmTr;
   sym_withTr; sym_raiseTr; sym_statementTr; sym_gotoTr; sym__statementTr];
   STATE 13420 [sym_assignment]; STATE 11684 [sym_varAssignDef]; STATE 13420 [sym_varDef;
   sym_constDef]; STATE 6307 [sym_label]; STATE 15875 [sym__statementsTr];
   STATE 14808 [sym_statementsTr]; STATE 8128 [sym__expr; sym_exprConditional];
   STATE 7533 [sym__ref; sym_lambda; sym_inherited; sym_exprDot; sym_exprDeref; sym_exprAs;
   sym_exprTpl; sym_exprSubscript; sym_exprCall]; STATE 8128 [sym_exprBinary; sym_exprUnary];
   STATE 7533 [sym_exprParens; sym_exprBrackets; sym__literal; sym_literalString];
   STATE 6915 [sym__literalString; sym_literalChar]; STATE 7533 [sym_literalNumber];
   STATE 7570 [sym__literalInt; sym__literalFloat]; STATE 1383 [sym__ppIf];
   STATE 6303 [sym__ppStatementBlock]; STATE 11951 [aux_sym_labeledStatement_repeat1];
   STATE 860 [aux_sym__statementsTr_repeat1]; STATE 6915 [aux_sym_literalString_repeat1];
   ACTIONS 925 [anon_sym_SEMI]; ACTIONS 927 [anon_sym_LBRACK]; ACTIONS 929 [anon_sym_LPAREN];
   ACTIONS 931 [aux_sym__literalString_token1]; ACTIONS 933 [anon_sym_POUND];
   ACTIONS 935 [aux_sym__literalInt_token1]; ACTIONS 937 [aux_sym__literalInt_token2;
   aux_sym__literalInt_token3]; ACTIONS 935 [aux_sym__literalFloat_token1];
   ACTIONS 411 [aux_sym_ppUsesBlock_token1]; ACTIONS 939 [sym_kAdd; sym_kSub];
   ACTIONS 941 [sym_kAt]; ACTIONS 943 [sym_kTrue; sym_kFalse]; ACTIONS 945 [sym_labelNumber];
   ACTIONS 3 [sym__space]; ACTIONS 5 [sym_ppDirective]; ACTIONS 3 [sym_comment];
   ACTIONS 943 [sym_ppFragmentExpr]; ACTIONS 925 [sym_ppFragmentStmt];
   ACTIONS 931 [sym__literalStringMultiline]; ACTIONS 947 [sym_identifier];
   ACTIONS 949 [sym_kSpecialize]; ACTIONS 951 [sym_kAsm]; ACTIONS 953 [sym_kBegin];
   ACTIONS 955 [sym_kCase]; ACTIONS 957 [sym_kConst]; ACTIONS 959 [sym_kFor];
   ACTIONS 961 [sym_kFunction]; ACTIONS 963 [sym_kGoto]; ACTIONS 965 [sym_kIf];
   ACTIONS 967 [sym_kInherited]; ACTIONS 943 [sym_kNil]; ACTIONS 941 [sym_kNot];
   ACTIONS 961 [sym_kProcedure]; ACTIONS 969 [sym_kRaise]; ACTIONS 971 [sym_kRepeat];
   ACTIONS 973 [sym_kString]; ACTIONS 975 [sym_kTry]; ACTIONS 977 [sym_kUntil];
   ACTIONS 979 [sym_kVar]; ACTIONS 981 [sym_kWhile]; ACTIONS 983 [sym_kWith]].

(** State 177. *)
Definition ts_parse_table_177 : parse_row :=
  [STATE 2899 [sym__ppIf]; STATE 996 [sym__procAttributeNoExt];
   STATE 1005 [sym__procAttributesPp]; STATE 15262 [sym_procAttribute];
   STATE 183 [aux_sym__declProc_repeat1]; ACTIONS 985 [anon_sym_SEMI; anon_sym_COMMA];
   ACTIONS 987 [anon_sym_LBRACK]; ACTIONS 990 [anon_sym_LPAREN];
   ACTIONS 985 [aux_sym__literalString_token1; anon_sym_POUND];
   ACTIONS 990 [aux_sym__literalInt_token1]; ACTIONS 985 [aux_sym__literalInt_token2;
   aux_sym__literalInt_token3]; ACTIONS 990 [aux_sym__literalFloat_token1];
   ACTIONS 992 [aux_sym_ppUsesBlock_token1]; ACTIONS 985 [aux_sym_ppUsesBlock_token2;
   aux_sym_ppUsesBlock_token3]; ACTIONS 990 [sym_kAdd; sym_kSub]; ACTIONS 985 [sym_kAt;
   sym_kTrue; sym_kFalse]; ACTIONS 3 [sym__space]; ACTIONS 5 [sym_ppDirective];
   ACTIONS 3 [sym_comment]; ACTIONS 985 [sym_ppFragmentExpr; sym__literalStringMultiline;
   sym_identifier]; ACTIONS 995 [sym_kDefault; sym_kNodefault]; ACTIONS 998 [sym_kDispId];
   ACTIONS 985 [sym_kGeneric; sym_kSpecialize; sym_kOperator]; ACTIONS 1001 [sym_kPublic];
   ACTIONS 985 [sym_kForward]; ACTIONS 995 [sym_kStatic; sym_kVirtual; sym_kAbstract;
   sym_kDynamic; sym_kOverride; sym_kOverload; sym_kReintroduce; sym_kStdcall; sym_kCdecl;
   sym_kCppdecl; sym_kPascal; sym_kRegister; sym_kMwpascal]; ACTIONS 985 [sym_kExternal];
   ACTIONS 1004 [sym_kMessage]; ACTIONS 1007 [sym_kDeprecated]; ACTIONS 995 [sym_kExperimental;
   sym_kPlatform; sym_kUnimplemented; sym_kCvar]; ACTIONS 1010 [sym_kExport];
   ACTIONS 995 [sym_kFar; sym_kNear; sym_kSafecall; sym_kAssembler; sym_kNostackframe;
   sym_kInterrupt; sym_kNoreturn; sym_kIocheck; sym_kLocal; sym_kHardfloat; sym_kSoftfloat;
   sym_kMs_abi_default; sym_kMs_abi_cdecl; sym_kSaveregisters; sym_kSysv_abi_default;
   sym_kSysv_abi_cdecl; sym_kVectorcall; sym_kVarargs; sym_kWinapi]; ACTIONS 1013 [sym_kAlias];
   ACTIONS 985 [sym_kAsm; sym_kBegin; sym_kCase; sym_kClass; sym_kConst; sym_kConstructor;
   sym_kDestructor; sym_kExports; sym_kFor; sym_kFunction; sym_kGoto; sym_kIf; sym_kInherited];
   ACTIONS 1016 [sym_kInline]; ACTIONS 985 [sym_kLabel; sym_kNil; sym_kNot; sym_kProcedure;
   sym_kProperty; sym_kRaise; sym_kRepeat; sym_kResourcestring; sym_kString; sym_kThreadvar;
   sym_kTry; sym_kType; sym_kUses; sym_kVar; sym_kWhile; sym_kWith]].

(** State 178. *)
Definition ts_parse_table_178 : parse_row :=
  [STATE 2899 [sym__ppIf]; STATE 996 [sym__procAttributeNoExt];
   STATE 1005 [sym__procAttributesPp]; STATE 15262 [sym_procAttribute];
   STATE 183 [aux_sym__declProc_repeat1]; ACTIONS 1018 [anon_sym_SEMI; anon_sym_COMMA];
   ACTIONS 1020 [anon_sym_LBRACK]; ACTIONS 1023 [anon_sym_LPAREN];
   ACTIONS 1018 [aux_sym__literalString_token1; anon_sym_POUND];
   ACTIONS 1023 [aux_sym__literalInt_token1]; ACTIONS 1018 [aux_sym__literalInt_token2;
   aux_sym__literalInt_token3]; ACTIONS 1023 [aux_sym__literalFloat_token1];
   ACTIONS 1025 [aux_sym_ppUsesBlock_token1]; ACTIONS 1018 [aux_sym_ppUsesBlock_token2;
   aux_sym_ppUsesBlock_token3]; ACTIONS 1023 [sym_kAdd; sym_kSub]; ACTIONS 1018 [sym_kAt;
   sym_kTrue; sym_kFalse]; ACTIONS 3 [sym__space]; ACTIONS 5 [sym_ppDirective];
   ACTIONS 3 [sym_comment]; ACTIONS 1018 [sym_ppFragmentExpr; sym__literalStringMultiline;
   sym_identifier]; ACTIONS 1028 [sym_kDefault; sym_kNodefault]; ACTIONS 1031 [sym_kDispId];
   ACTIONS 1018 [sym_kGeneric; sym_kSpecialize; sym_kOperator]; ACTIONS 1034 [sym_kPublic];
   ACTIONS 1018 [sym_kForward]; ACTIONS 1028 [sym_kStatic; sym_kVirtual; sym_kAbstract;
   sym_kDynamic; sym_kOverride; sym_kOverload; sym_kReintroduce; sym_kStdcall; sym_kCdecl;
   sym_kCppdecl; sym_kPascal; sym_kRegister; sym_kMwpascal]; ACTIONS 1018 [sym_kExternal];
   ACTIONS 1037 [sym_kMessage]; ACTIONS 1040 [sym_kDeprecated]; ACTIONS 1028 [sym_kExperimental;
   sym_kPlatform; sym_kUnimplemented; sym_kCvar]; ACTIONS 1043 [sym_kExport];
   ACTIONS 1028 [sym_kFar; sym_kNear; sym_kSafecall; sym_kAssembler; sym_kNostackframe;
   sym_kInterrupt; sym_kNoreturn; sym_kIocheck; sym_kLocal; sym_kHardfloat; sym_kSoftfloat;
   sym_kMs_abi_default; sym_kMs_abi_cdecl; sym_kSaveregisters; sym_kSysv_abi_default;
   sym_kSysv_abi_cdecl; sym_kVectorcall; sym_kVarargs; sym_kWinapi]; ACTIONS 1046 [sym_kAlias];
   ACTIONS 1018 [sym_kAsm; sym_kBegin; sym_kCase; sym_kClass; sym_kConst; sym_kConstructor;
   sym_kDestructor; sym_kExports; sym_kFor; sym_kFunction; sym_kGoto; sym_kIf; sym_kInherited];
   ACTIONS 1016 [sym_kInline]; ACTIONS 1018 [sym_kLabel; sym_kNil; sym_kNot; sym_kProcedure;
   sym_kProperty; sym_kRaise; sym_kRepeat; sym_kResourcestring; sym_kString; sym_kThreadvar;
   sym_kTry; sym_kType; sym_kUses; sym_kVar; sym_kWhile; sym_kWith]].

(** State 179. *)
Definition ts_parse_table_179 : parse_row :=
  [STATE 2899 [sym__ppIf]; STATE 996 [sym__procAttributeNoExt];
   STATE 1005 [sym__procAttributesPp]; STATE 15262 [sym_procAttribute];
   STATE 183 [aux_sym__declProc_repeat1]; ACTIONS 1049 [anon_sym_SEMI; anon_sym_COMMA];
   ACTIONS 1051 [anon_sym_LBRACK]; ACTIONS 1054 [anon_sym_LPAREN];
   ACTIONS 1049 [aux_sym__literalString_token1; anon_sym_POUND];
   ACTIONS 1054 [aux_sym__literalInt_token1]; ACTIONS 1049 [aux_sym__literalInt_token2;
   aux_sym__literalInt_token3]; ACTIONS 1054 [aux_sym__literalFloat_token1];
   ACTIONS 1056 [aux_sym_ppUsesBlock_token1]; ACTIONS 1049 [aux_sym_ppUsesBlock_token2;
   aux_sym_ppUsesBlock_token3]; ACTIONS 1054 [sym_kAdd; sym_kSub]; ACTIONS 1049 [sym_kAt;
   sym_kTrue; sym_kFalse]; ACTIONS 3 [sym__space]; ACTIONS 5 [sym_ppDirective];
   ACTIONS 3 [sym_comment]; ACTIONS 1049 [sym_ppFragmentExpr; sym__literalStringMultiline;
   sym_identifier]; ACTIONS 1059 [sym_kDefault; sym_kNodefault]; ACTIONS 1062 [sym_kDispId];
   ACTIONS 1049 [sym_kGeneric; sym_kSpecialize; sym_kOperator]; ACTIONS 1065 [sym_kPublic];
   ACTIONS 1049 [sym_kForward]; ACTIONS 1059 [sym_kStatic; sym_kVirtual; sym_kAbstract;
   sym_kDynamic; sym_kOverride; sym_kOverload; sym_kReintroduce; sym_kStdcall; sym_kCdecl;
   sym_kCppdecl; sym_kPascal; sym_kRegister; sym_kMwpascal]; ACTIONS 1049 [sym_kExternal];
   ACTIONS 1068 [sym_kMessage]; ACTIONS 1071 [sym_kDeprecated]; ACTIONS 1059 [sym_kExperimental;
   sym_kPlatform; sym_kUnimplemented; sym_kCvar]; ACTIONS 1074 [sym_kExport];
   ACTIONS 1059 [sym_kFar; sym_kNear; sym_kSafecall; sym_kAssembler; sym_kNostackframe;
   sym_kInterrupt; sym_kNoreturn; sym_kIocheck; sym_kLocal; sym_kHardfloat; sym_kSoftfloat;
   sym_kMs_abi_default; sym_kMs_abi_cdecl; sym_kSaveregisters; sym_kSysv_abi_default;
   sym_kSysv_abi_cdecl; sym_kVectorcall; sym_kVarargs; sym_kWinapi]; ACTIONS 1077 [sym_kAlias];
   ACTIONS 1049 [sym_kAsm; sym_kBegin; sym_kCase; sym_kClass; sym_kConst; sym_kConstructor;
   sym_kDestructor; sym_kExports; sym_kFor; sym_kFunction; sym_kGoto; sym_kIf; sym_kInherited];
   ACTIONS 1016 [sym_kInline]; ACTIONS 1049 [sym_kLabel; sym_kNil; sym_kNot; sym_kProcedure;
   sym_kProperty; sym_kRaise; sym_kRepeat; sym_kResourcestring; sym_kString; sym_kThreadvar;
   sym_kTry; sym_kType; sym_kUses; sym_kVar; sym_kWhile; sym_kWith]].

(** State 180. *)
Definition ts_parse_table_180 : parse_row :=
  [STATE 2899 [sym__ppIf]; STATE 996 [sym__procAttributeNoExt];
   STATE 1005 [sym__procAttributesPp]; STATE 15262 [sym_procAttribute];
   STATE 182 [aux_sym__declProc_repeat1]; ACTIONS 1080 [anon_sym_SEMI; anon_sym_COMMA];
   ACTIONS 1082 [anon_sym_LBRACK]; ACTIONS 1085 [anon_sym_LPAREN];
   ACTIONS 1080 [aux_sym__literalString_token1; anon_sym_POUND];
   ACTIONS 1085 [aux_sym__literalInt_token1]; ACTIONS 1080 [aux_sym__literalInt_token2;
   aux_sym__literalInt_token3]; ACTIONS 1085 [aux_sym__literalFloat_token1];
   ACTIONS 1087 [aux_sym_ppUsesBlock_token1]; ACTIONS 1080 [aux_sym_ppUsesBlock_token2;
   aux_sym_ppUsesBlock_token3]; ACTIONS 1085 [sym_kAdd; sym_kSub]; ACTIONS 1080 [sym_kAt;
   sym_kTrue; sym_kFalse]; ACTIONS 3 [sym__space]; ACTIONS 5 [sym_ppDirective];
   ACTIONS 3 [sym_comment]; ACTIONS 1080 [sym_ppFragmentExpr; sym__literalStringMultiline;
   sym_identifier]; ACTIONS 1090 [sym_kDefault; sym_kNodefault]; ACTIONS 1093 [sym_kDispId];
   ACTIONS 1080 [sym_kGeneric; sym_kSpecialize; sym_kOperator]; ACTIONS 1096 [sym_kPublic];
   ACTIONS 1080 [sym_kForward]; ACTIONS 1090 [sym_kStatic; sym_kVirtual; sym_kAbstract;
   sym_kDynamic; sym_kOverride; sym_kOverload; sym_kReintroduce; sym_kStdcall; sym_kCdecl;
   sym_kCppdecl; sym_kPascal; sym_kRegister; sym_kMwpascal]; ACTIONS 1080 [sym_kExternal];
   ACTIONS 1099 [sym_kMessage]; ACTIONS 1102 [sym_kDeprecated]; ACTIONS 1090 [sym_kExperimental;
   sym_kPlatform; sym_kUnimplemented; sym_kCvar]; ACTIONS 1105 [sym_kExport];
   ACTIONS 1090 [sym_kFar; sym_kNear; sym_kSafecall; sym_kAssembler; sym_kNostackframe;
   sym_kInterrupt; sym_kNoreturn; sym_kIocheck; sym_kLocal; sym_kHardfloat; sym_kSoftfloat;
   sym_kMs_abi_default; sym_kMs_abi_cdecl; sym_kSaveregisters; sym_kSysv_abi_default;
   sym_kSysv_abi_cdecl; sym_kVectorcall; sym_kVarargs; sym_kWinapi]; ACTIONS 1108 [sym_kAlias];
   ACTIONS 1080 [sym_kAsm; sym_kBegin; sym_kCase; sym_kClass; sym_kConst; sym_kConstructor;
   sym_kDestructor; sym_kExports; sym_kFor; sym_kFunction; sym_kGoto; sym_kIf; sym_kInherited];
   ACTIONS 1016 [sym_kInline]; ACTIONS 1080 [sym_kLabel; sym_kNil; sym_kNot; sym_kProcedure;
   sym_kProperty; sym_kRaise; sym_kRepeat; sym_kResourcestring; sym_kString; sym_kThreadvar;
   sym_kTry; sym_kType; sym_kUses; sym_kVar; sym_kWhile; sym_kWith]].

(** State 181. *)
Definition ts_parse_table_181 : parse_row :=
  [STATE 2899 [sym__ppIf]; STATE 996 [sym__procAttributeNoExt];
   STATE 1005 [sym__procAttributesPp]; STATE 15262 [sym_procAttribute];
   STATE 183 [aux_sym__declProc_repeat1]; ACTIONS 1111 [anon_sym_SEMI; anon_sym_COMMA];
   ACTIONS 1113 [anon_sym_LBRACK]; ACTIONS 1116 [anon_sym_LPAREN];
   ACTIONS 1111 [aux_sym__literalString_token1; anon_sym_POUND];
   ACTIONS 1116 [aux_sym__literalInt_token1]; ACTIONS 1111 [aux_sym__literalInt_token2;
   aux_sym__literalInt_token3]; ACTIONS 1116 [aux_sym__literalFloat_token1];
   ACTIONS 1118 [aux_sym_ppUsesBlock_token1]; ACTIONS 1111 [aux_sym_ppUsesBlock_token2;
   aux_sym_ppUsesBlock_token3]; ACTIONS 1116 [sym_kAdd; sym_kSub]; ACTIONS 1111 [sym_kAt;
   sym_kTrue; sym_kFalse]; ACTIONS 3 [sym__space]; ACTIONS 5 [sym_ppDirective];
   ACTIONS 3 [sym_comment]; ACTIONS 1111 [sym_ppFragmentExpr; sym__literalStringMultiline;
   sym_identifier]; ACTIONS 1121 [sym_kDefault; sym_kNodefault]; ACTIONS 1124 [sym_kDispId];
   ACTIONS 1111 [sym_kGeneric; sym_kSpecialize; sym_kOperator]; ACTIONS 1127 [sym_kPublic];
   ACTIONS 1111 [sym_kForward]; ACTIONS 1121 [sym_kStatic; sym_kVirtual; sym_kAbstract;
   sym_kDynamic; sym_kOverride; sym_kOverload; sym_kReintroduce; sym_kStdcall; sym_kCdecl;
   sym_kCppdecl; sym_kPascal; sym_kRegister; sym_kMwpascal]; ACTIONS 1111 [sym_kExternal];
   ACTIONS 1130 [sym_kMessage]; ACTIONS 1133 [sym_kDeprecated]; ACTIONS 1121 [sym_kExperimental;
   sym_kPlatform; sym_kUnimplemented; sym_kCvar]; ACTIONS 1136 [sym_kExport];
   ACTIONS 1121 [sym_kFar; sym_kNear; sym_kSafecall; sym_kAssembler; sym_kNostackframe;
   sym_kInterrupt; sym_kNoreturn; sym_kIocheck; sym_kLocal; sym_kHardfloat; sym_kSoftfloat;
   sym_kMs_abi_default; sym_kMs_abi_cdecl; sym_kSaveregisters; sym_kSysv_abi_default;
   sym_kSysv_abi_cdecl; sym_kVectorcall; sym_kVarargs; sym_kWinapi]; ACTIONS 1139 [sym_kAlias];
   ACTIONS 1111 [sym_kAsm; sym_kBegin; sym_kCase; sym_kClass; sym_kConst; sym_kConstructor;
   sym_kDestructor; sym_kExports; sym_kFor; sym_kFunction; sym_kGoto; sym_kIf; sym_kInherited];
   ACTIONS 1016 [sym_kInline]; ACTIONS 1111 [sym_kLabel; sym_kNil; sym_kNot; sym_kProcedure;
   sym_kProperty; sym_kRaise; sym_kRepeat; sym_kResourcestring; sym_kString; sym_kThreadvar;
   sym_kTry; sym_kType; sym_kUses; sym_kVar; sym_kWhile; sym_kWith]].

(** State 182. *)
Definition ts_parse_table_182 : parse_row :=
  [STATE 2899 [sym__ppIf]; STATE 996 [sym__procAttributeNoExt];
   STATE 1005 [sym__procAttributesPp]; STATE 15262 [sym_procAttribute];
   STATE 183 [aux_sym__declProc_repeat1]; ACTIONS 1142 [anon_sym_SEMI; anon_sym_COMMA];
   ACTIONS 1144 [anon_sym_LBRACK]; ACTIONS 1147 [anon_sym_LPAREN];
   ACTIONS 1142 [aux_sym__literalString_token1; anon_sym_POUND];
   ACTIONS 1147 [aux_sym__literalInt_token1]; ACTIONS 1142 [aux_sym__literalInt_token2;
   aux_sym__literalInt_token3]; ACTIONS 1147 [aux_sym__literalFloat_token1];
   ACTIONS 1149 [aux_sym_ppUsesBlock_token1]; ACTIONS 1142 [aux_sym_ppUsesBlock_token2;
   aux_sym_ppUsesBlock_token3]; ACTIONS 1147 [sym_kAdd; sym_kSub]; ACTIONS 1142 [sym_kAt;
   sym_kTrue; sym_kFalse]; ACTIONS 3 [sym__space]; ACTIONS 5 [sym_ppDirective];
   ACTIONS 3 [sym_comment]; ACTIONS 1142 [sym_ppFragmentExpr; sym__literalStringMultiline;
   sym_identifier]; ACTIONS 1152 [sym_kDefault; sym_kNodefault]; ACTIONS 1155 [sym_kDispId];
   ACTIONS 1142 [sym_kGeneric; sym_kSpecialize; sym_kOperator]; ACTIONS 1158 [sym_kPublic];
   ACTIONS 1142 [sym_kForward]; ACTIONS 1152 [sym_kStatic; sym_kVirtual; sym_kAbstract;
   sym_kDynamic; sym_kOverride; sym_kOverload; sym_kReintroduce; sym_kStdcall; sym_kCdecl;
   sym_kCppdecl; sym_kPascal; sym_kRegister; sym_kMwpascal]; ACTIONS 1142 [sym_kExternal];
   ACTIONS 1161 [sym_kMessage]; ACTIONS 1164 [sym_kDeprecated]; ACTIONS 1152 [sym_kExperimental;
   sym_kPlatform; sym_kUnimplemented; sym_kCvar]; ACTIONS 1167 [sym_kExport];
   ACTIONS 1152 [sym_kFar; sym_kNear; sym_kSafecall; sym_kAssembler; sym_kNostackframe;
   sym_kInterrupt; sym_kNoreturn; sym_kIocheck; sym_kLocal; sym_kHardfloat; sym_kSoftfloat;
   sym_kMs_abi_default; sym_kMs_abi_cdecl; sym_kSaveregisters; sym_kSysv_abi_default;
   sym_kSysv_abi_cdecl; sym_kVectorcall; sym_kVarargs; sym_kWinapi]; ACTIONS 1170 [sym_kAlias];
   ACTIONS 1142 [sym_kAsm; sym_kBegin; sym_kCase; sym_kClass; sym_kConst; sym_kConstructor;
   sym_kDestructor; sym_kExports; sym_kFor; sym_kFunction; sym_kGoto; sym_kIf; sym_kInherited];
   ACTIONS 1016 [sym_kInline]; ACTIONS 1142 [sym_kLabel; sym_kNil; sym_kNot; sym_kProcedure;
   sym_kProperty; sym_kRaise; sym_kRepeat; sym_kResourcestring; sym_kString; sym_kThreadvar;
   sym_kTry; sym_kType; sym_kUses; sym_kVar; sym_kWhile; sym_kWith]].

(** State 183. *)
Definition ts_parse_table_183 : parse_row :=
  [STATE 2899 [sym__ppIf]; STATE 996 [sym__procAttributeNoExt];
   STATE 1005 [sym__procAttributesPp]; STATE 15262 [sym_procAttribute];
   STATE 183 [aux_sym__declProc_repeat1]; ACTIONS 1173 [anon_sym_SEMI; anon_sym_COMMA];
   ACTIONS 1175 [anon_sym_LBRACK]; ACTIONS 1178 [anon_sym_LPAREN];
   ACTIONS 1173 [aux_sym__literalString_token1; anon_sym_POUND];
   ACTIONS 1178 [aux_sym__literalInt_token1]; ACTIONS 1173 [aux_sym__literalInt_token2;
   aux_sym__literalInt_token3]; ACTIONS 1178 [aux_sym__literalFloat_token1];
   ACTIONS 1180 [aux_sym_ppUsesBlock_token1]; ACTIONS 1173 [aux_sym_ppUsesBlock_token2;
   aux_sym_ppUsesBlock_token3]; ACTIONS 1178 [sym_kAdd; sym_kSub]; ACTIONS 1173 [sym_kAt;
   sym_kTrue; sym_kFalse]; ACTIONS 3 [sym__space]; ACTIONS 5 [sym_ppDirective];
   ACTIONS 3 [sym_comment]; ACTIONS 1173 [sym_ppFragmentExpr; sym__literalStringMultiline;
   sym_identifier]; ACTIONS 1183 [sym_kDefault; sym_kNodefault]; ACTIONS 1186 [sym_kDispId];
   ACTIONS 1173 [sym_kGeneric; sym_kSpecialize; sym_kOperator]; ACTIONS 1189 [sym_kPublic];
   ACTIONS 1173 [sym_kForward]; ACTIONS 1183 [sym_kStatic; sym_kVirtual; sym_kAbstract;
   sym_kDynamic; sym_kOverride; sym_kOverload; sym_kReintroduce; sym_kStdcall; sym_kCdecl;
   sym_kCppdecl; sym_kPascal; sym_kRegister; sym_kMwpascal]; ACTIONS 1173 [sym_kExternal];
   ACTIONS 1192 [sym_kMessage]; ACTIONS 1195 [sym_kDeprecated]; ACTIONS 1183 [sym_kExperimental;
   sym_kPlatform; sym_kUnimplemented; sym_kCvar]; ACTIONS 1198 [sym_kExport];
   ACTIONS 1183 [sym_kFar; sym_kNear; sym_kSafecall; sym_kAssembler; sym_kNostackframe;
   sym_kInterrupt; sym_kNoreturn; sym_kIocheck; sym_kLocal; sym_kHardfloat; sym_kSoftfloat;
   sym_kMs_abi_default; sym_kMs_abi_cdecl; sym_kSaveregisters; sym_kSysv_abi_default;
   sym_kSysv_abi_cdecl; sym_kVectorcall; sym_kVarargs; sym_kWinapi]; ACTIONS 1201 [sym_kAlias];
   ACTIONS 1173 [sym_kAsm; sym_kBegin; sym_kCase; sym_kClass; sym_kConst; sym_kConstructor;
   sym_kDestructor; sym_kExports; sym_kFor; sym_kFunction; sym_kGoto; sym_kIf; sym_kInherited];
   ACTIONS 1183 [sym_kInline]; ACTIONS 1173 [sym_kLabel; sym_kNil; sym_kNot; sym_kProcedure;
   sym_kProperty; sym_kRaise; sym_kRepeat; sym_kResourcestring; sym_kString; sym_kThreadvar;
   sym_kTry; sym_kType; sym_kUses; sym_kVar; sym_kWhile; sym_kWith]].

(** State 184. *)
Definition ts_parse_table_184 : parse_row :=
  [STATE 6273 [sym_if]; STATE 6303 [sym_ifElse; sym_while; sym_repeat; sym_for; sym_foreach;
   sym_try; sym_case; sym_block; sym_asm; sym_with; sym_raise; sym_statement; sym_goto;
   sym__statement]; STATE 15875 [sym_ifTr; sym_ifElseTr; sym_whileTr; sym_repeatTr; sym_forTr;
   sym_foreachTr; sym_tryTr; sym_caseTr]; STATE 14967 [sym_blockTr]; STATE 15875 [sym_asmTr;
   sym_withTr; sym_raiseTr; sym_statementTr; sym_gotoTr; sym__statementTr];
   STATE 13420 [sym_assignment]; STATE 11684 [sym_varAssignDef]; STATE 13420 [sym_varDef;
   sym_constDef]; STATE 6307 [sym_label]; STATE 15875 [sym__statementsTr];
   STATE 15962 [sym_statementsTr]; STATE 8128 [sym__expr; sym_exprConditional];
   STATE 7533 [sym__ref; sym_lambda; sym_inherited; sym_exprDot; sym_exprDeref; sym_exprAs;
   sym_exprTpl; sym_exprSubscript; sym_exprCall]; STATE 8128 [sym_exprBinary; sym_exprUnary];
   STATE 7533 [sym_exprParens; sym_exprBrackets; sym__literal; sym_literalString];
   STATE 6915 [sym__literalString; sym_literalChar]; STATE 7533 [sym_literalNumber];
   STATE 7570 [sym__literalInt; sym__literalFloat]; STATE 1383 [sym__ppIf];
   STATE 6303 [sym__ppStatementBlock]; STATE 11951 [aux_sym_labeledStatement_repeat1];
   STATE 860 [aux_sym__statementsTr_repeat1]; STATE 6915 [aux_sym_literalString_repeat1];
   ACTIONS 925 [anon_sym_SEMI]; ACTIONS 927 [anon_sym_LBRACK]; ACTIONS 929 [anon_sym_LPAREN];
   ACTIONS 931 [aux_sym__literalString_token1]; ACTIONS 933 [anon_sym_POUND];
   ACTIONS 935 [aux_sym__literalInt_token1]; ACTIONS 937 [aux_sym__literalInt_token2;
   aux_sym__literalInt_token3]; ACTIONS 935 [aux_sym__literalFloat_token1];
   ACTIONS 411 [aux_sym_ppUsesBlock_token1]; ACTIONS 939 [sym_kAdd; sym_kSub];
   ACTIONS 941 [sym_kAt]; ACTIONS 943 [sym_kTrue; sym_kFalse]; ACTIONS 945 [sym_labelNumber];
   ACTIONS 3 [sym__space]; ACTIONS 5 [sym_ppDirective]; ACTIONS 3 [sym_comment];
   ACTIONS 943 [sym_ppFragmentExpr]; ACTIONS 925 [sym_ppFragmentStmt];
   ACTIONS 931 [sym__literalStringMultiline]; ACTIONS 947 [sym_identifier];
   ACTIONS 949 [sym_kSpecialize]; ACTIONS 951 [sym_kAsm]; ACTIONS 953 [sym_kBegin];
   ACTIONS 955 [sym_kCase]; ACTIONS 957 [sym_kConst]; ACTIONS 959 [sym_kFor];
   ACTIONS 961 [sym_kFunction]; ACTIONS 963 [sym_kGoto]; ACTIONS 965 [sym_kIf];
   ACTIONS 967 [sym_kInherited]; ACTIONS 943 [sym_kNil]; ACTIONS 941 [sym_kNot];
   ACTIONS 961 [sym_kProcedure]; ACTIONS 969 [sym_kRaise]; ACTIONS 971 [sym_kRepeat];
   ACTIONS 973 [sym_kString]; ACTIONS 975 [sym_kTry]; ACTIONS 1204 [sym_kUntil];
   ACTIONS 979 [sym_kVar]; ACTIONS 981 [sym_kWhile]; ACTIONS 983 [sym_kWith]].

(** State 185. *)
Definition ts_parse_table_185 : parse_row :=
  [STATE 6213 [sym_if]; STATE 6327 [sym_ifElse; sym_while; sym_repeat; sym_for; sym_foreach;
   sym_try; sym_case; sym_block; sym_asm; sym_with; sym_raise; sym_statement; sym_goto;
   sym__statement]; STATE 15991 [sym_ifTr; sym_ifElseTr; sym_whileTr; sym_repeatTr; sym_forTr;
   sym_foreachTr; sym_tryTr; sym_caseTr]; STATE 14251 [sym_blockTr]; STATE 15991 [sym_asmTr;
   sym_withTr; sym_raiseTr; sym_statementTr; sym_gotoTr; sym__statementTr];
   STATE 13915 [sym_assignment]; STATE 11785 [sym_varAssignDef]; STATE 13915 [sym_varDef;
   sym_constDef]; STATE 6166 [sym_label]; STATE 15991 [sym__statementsTr];
   STATE 15503 [sym_statementsTr]; STATE 8019 [sym__expr; sym_exprConditional];
   STATE 7478 [sym__ref; sym_lambda; sym_inherited; sym_exprDot; sym_exprDeref; sym_exprAs;
   sym_exprTpl; sym_exprSubscript; sym_exprCall]; STATE 8019 [sym_exprBinary; sym_exprUnary];
   STATE 7478 [sym_exprParens; sym_exprBrackets; sym__literal; sym_literalString];
   STATE 6664 [sym__literalString; sym_literalChar]; STATE 7478 [sym_literalNumber];
   STATE 7742 [sym__literalInt; sym__literalFloat]; STATE 1380 [sym__ppIf];
   STATE 6327 [sym__ppStatementBlock]; STATE 11840 [aux_sym_labeledStatement_repeat1];
   STATE 863 [aux_sym__statementsTr_repeat1]; STATE 6664 [aux_sym_literalString_repeat1];
   ACTIONS 397 [anon_sym_SEMI]; ACTIONS 399 [anon_sym_LBRACK]; ACTIONS 401 [anon_sym_LPAREN];
   ACTIONS 403 [aux_sym__literalString_token1]; ACTIONS 405 [anon_sym_POUND];
   ACTIONS 407 [aux_sym__literalInt_token1]; ACTIONS 409 [aux_sym__literalInt_token2;
   aux_sym__literalInt_token3]; ACTIONS 407 [aux_sym__literalFloat_token1];
   ACTIONS 411 [aux_sym_ppUsesBlock_token1]; ACTIONS 413 [sym_kAdd; sym_kSub];
   ACTIONS 415 [sym_kAt]; ACTIONS 417 [sym_kTrue; sym_kFalse]; ACTIONS 419 [sym_labelNumber];
   ACTIONS 3 [sym__space]; ACTIONS 5 [sym_ppDirective]; ACTIONS 3 [sym_comment];
   ACTIONS 417 [sym_ppFragmentExpr]; ACTIONS 397 [sym_ppFragmentStmt];
   ACTIONS 403 [sym__literalStringMultiline]; ACTIONS 421 [sym_identifier];
   ACTIONS 423 [sym_kSpecialize]; ACTIONS 427 [sym_kAsm]; ACTIONS 429 [sym_kBegin];
   ACTIONS 431 [sym_kCase]; ACTIONS 433 [sym_kConst]; ACTIONS 1206 [sym_kEnd];
   ACTIONS 437 [sym_kFor]; ACTIONS 439 [sym_kFunction]; ACTIONS 441 [sym_kGoto];
   ACTIONS 443 [sym_kIf]; ACTIONS 445 [sym_kInherited]; ACTIONS 417 [sym_kNil];
   ACTIONS 415 [sym_kNot]; ACTIONS 439 [sym_kProcedure]; ACTIONS 447 [sym_kRaise];
   ACTIONS 449 [sym_kRepeat]; ACTIONS 451 [sym_kString]; ACTIONS 453 [sym_kTry];
   ACTIONS 455 [sym_kVar]; ACTIONS 457 [sym_kWhile]; ACTIONS 459 [sym_kWith]].

(** State 186. *)
Definition ts_parse_table_186 : parse_row :=
  [STATE 6213 [sym_if]; STATE 6327 [sym_ifElse; sym_while; sym_repeat; sym_for; sym_foreach;
   sym_try; sym_case; sym_block; sym_asm; sym_with; sym_raise; sym_statement; sym_goto;
   sym__statement]; STATE 15991 [sym_ifTr; sym_ifElseTr; sym_whileTr; sym_repeatTr; sym_forTr;
   sym_foreachTr; sym_tryTr; sym_caseTr]; STATE 14251 [sym_blockTr]; STATE 15991 [sym_asmTr;
   sym_withTr; sym_raiseTr; sym_statementTr; sym_gotoTr; sym__statementTr];
   STATE 13915 [sym_assignment]; STATE 11785 [sym_varAssignDef]; STATE 13915 [sym_varDef;
   sym_constDef]; STATE 6166 [sym_label]; STATE 15991 [sym__statementsTr];
   STATE 15218 [sym_statementsTr]; STATE 8019 [sym__expr; sym_exprConditional];
   STATE 7478 [sym__ref; sym_lambda; sym_inherited; sym_exprDot; sym_exprDeref; sym_exprAs;
   sym_exprTpl; sym_exprSubscript; sym_exprCall]; STATE 8019 [sym_exprBinary; sym_exprUnary];
   STATE 7478 [sym_exprParens; sym_exprBrackets; sym__literal; sym_literalString];
   STATE 6664 [sym__literalString; sym_literalChar]; STATE 7478 [sym_literalNumber];
   STATE 7742 [sym__literalInt; sym__literalFloat]; STATE 1380 [sym__ppIf];
   STATE 6327 [sym__ppStatementBlock]; STATE 11840 [aux_sym_labeledStatement_repeat1];
   STATE 863 [aux_sym__statementsTr_repeat1]; STATE 6664 [aux_sym_literalString_repeat1];
   ACTIONS 397 [anon_sym_SEMI]; ACTIONS 399 [anon_sym_LBRACK]; ACTIONS 401 [anon_sym_LPAREN];
   ACTIONS 403 [aux_sym__literalString_token1]; ACTIONS 405 [anon_sym_POUND];
   ACTIONS 407 [aux_sym__literalInt_token1]; ACTIONS 409 [aux_sym__literalInt_token2;
   aux_sym__literalInt_token3]; ACTIONS 407 [aux_sym__literalFloat_token1];
   ACTIONS 411 [aux_sym_ppUsesBlock_token1]; ACTIONS 413 [sym_kAdd; sym_kSub];
   ACTIONS 415 [sym_kAt]; ACTIONS 417 [sym_kTrue; sym_kFalse]; ACTIONS 419 [sym_labelNumber];
   ACTIONS 3 [sym__space]; ACTIONS 5 [sym_ppDirective]; ACTIONS 3 [sym_comment];
   ACTIONS 417 [sym_ppFragmentExpr]; ACTIONS 397 [sym_ppFragmentStmt];
   ACTIONS 403 [sym__literalStringMultiline]; ACTIONS 421 [sym_identifier];
   ACTIONS 423 [sym_kSpecialize]; ACTIONS 427 [sym_kAsm]; ACTIONS 429 [sym_kBegin];
   ACTIONS 431 [sym_kCase]; ACTIONS 433 [sym_kConst]; ACTIONS 1208 [sym_kEnd];
   ACTIONS 437 [sym_kFor]; ACTIONS 439 [sym_kFunction]; ACTIONS 441 [sym_kGoto];
   ACTIONS 443 [sym_kIf]; ACTIONS 445 [sym_kInherited]; ACTIONS 417 [sym_kNil];
   ACTIONS 415 [sym_kNot]; ACTIONS 439 [sym_kProcedure]; ACTIONS 447 [sym_kRaise];
   ACTIONS 449 [sym_kRepeat]; ACTIONS 451 [sym_kString]; ACTIONS 453 [sym_kTry];
   ACTIONS 455 [sym_kVar]; ACTIONS 457 [sym_kWhile]; ACTIONS 459 [sym_kWith]].

(** State 187. *)
Definition ts_parse_table_187 : parse_row :=
  [STATE 6213 [sym_if]; STATE 6327 [sym_ifElse; sym_while; sym_repeat; sym_for; sym_foreach;
   sym_try; sym_case; sym_block; sym_asm; sym_with; sym_raise; sym_statement; sym_goto;
   sym__statement]; STATE 15991 [sym_ifTr; sym_ifElseTr; sym_whileTr; sym_repeatTr; sym_forTr;
   sym_foreachTr; sym_tryTr; sym_caseTr]; STATE 14251 [sym_blockTr]; STATE 15991 [sym_asmTr;
   sym_withTr; sym_raiseTr; sym_statementTr; sym_gotoTr; sym__statementTr];
   STATE 13915 [sym_assignment]; STATE 11785 [sym_varAssignDef]; STATE 13915 [sym_varDef;
   sym_constDef]; STATE 6166 [sym_label]; STATE 15991 [sym__statementsTr];
   STATE 14435 [sym_statementsTr]; STATE 8019 [sym__expr; sym_exprConditional];
   STATE 7478 [sym__ref; sym_lambda; sym_inherited; sym_exprDot; sym_exprDeref; sym_exprAs;
   sym_exprTpl; sym_exprSubscript; sym_exprCall]; STATE 8019 [sym_exprBinary; sym_exprUnary];
   STATE 7478 [sym_exprParens; sym_exprBrackets; sym__literal; sym_literalString];
   STATE 6664 [sym__literalString; sym_literalChar]; STATE 7478 [sym_literalNumber];
   STATE 7742 [sym__literalInt; sym__literalFloat]; STATE 1380 [sym__ppIf];
   STATE 6327 [sym__ppStatementBlock]; STATE 11840 [aux_sym_labeledStatement_repeat1];
   STATE 863 [aux_sym__statementsTr_repeat1]; STATE 6664 [aux_sym_literalString_repeat1];
   ACTIONS 397 [anon_sym_SEMI]; ACTIONS 399 [anon_sym_LBRACK]; ACTIONS 401 [anon_sym_LPAREN];
   ACTIONS 403 [aux_sym__literalString_token1]; ACTIONS 405 [anon_sym_POUND];
   ACTIONS 407 [aux_sym__literalInt_token1]; ACTIONS 409 [aux_sym__literalInt_token2;
   aux_sym__literalInt_token3]; ACTIONS 407 [aux_sym__literalFloat_token1];
   ACTIONS 411 [aux_sym_ppUsesBlock_token1]; ACTIONS 413 [sym_kAdd; sym_kSub];
   ACTIONS 415 [sym_kAt]; ACTIONS 417 [sym_kTrue; sym_kFalse]; ACTIONS 419 [sym_labelNumber];
   ACTIONS 3 [sym__space]; ACTIONS 5 [sym_ppDirective]; ACTIONS 3 [sym_comment];
   ACTIONS 417 [sym_ppFragmentExpr]; ACTIONS 397 [sym_ppFragmentStmt];
   ACTIONS 403 [sym__literalStringMultiline]; ACTIONS 421 [sym_identifier];
   ACTIONS 423 [sym_kSpecialize]; ACTIONS 427 [sym_kAsm]; ACTIONS 429 [sym_kBegin];
   ACTIONS 431 [sym_kCase]; ACTIONS 433 [sym_kConst]; ACTIONS 1210 [sym_kEnd];
   ACTIONS 437 [sym_kFor]; ACTIONS 439 [sym_kFunction]; ACTIONS 441 [sym_kGoto];
   ACTIONS 443 [sym_kIf]; ACTIONS 445 [sym_kInherited]; ACTIONS 417 [sym_kNil];
   ACTIONS 415 [sym_kNot]; ACTIONS 439 [sym_kProcedure]; ACTIONS 447 [sym_kRaise];
   ACTIONS 449 [sym_kRepeat]; ACTIONS 451 [sym_kString]; ACTIONS 453 [sym_kTry];
   ACTIONS 455 [sym_kVar]; ACTIONS 457 [sym_kWhile]; ACTIONS 459 [sym_kWith]].

(** State 188. *)
Definition ts_parse_table_188 : parse_row :=
  [STATE 6213 [sym_if]; STATE 6327 [sym_ifElse; sym_while; sym_repeat; sym_for; sym_foreach;
   sym_try; sym_case; sym_block; sym_asm; sym_with; sym_raise; sym_statement; sym_goto;
   sym__statement]; STATE 15222 [sym_ifTr; sym_ifElseTr; sym_whileTr; sym_repeatTr; sym_forTr;
   sym_foreachTr; sym_tryTr; sym_caseTr]; STATE 14251 [sym_blockTr]; STATE 15222 [sym_asmTr;
   sym_withTr; sym_raiseTr; sym_statementTr; sym_gotoTr; sym__statementTr];
   STATE 13915 [sym_assignment]; STATE 11785 [sym_varAssignDef]; STATE 13915 [sym_varDef;
   sym_constDef]; STATE 6166 [sym_label]; STATE 15222 [sym__statementsTr]; STATE 8019 [sym__expr;
   sym_exprConditional]; STATE 7478 [sym__ref; sym_lambda; sym_inherited; sym_exprDot;
   sym_exprDeref; sym_exprAs; sym_exprTpl; sym_exprSubscript; sym_exprCall];
   STATE 8019 [sym_exprBinary; sym_exprUnary]; STATE 7478 [sym_exprParens; sym_exprBrackets;
   sym__literal; sym_literalString]; STATE 6664 [sym__literalString; sym_literalChar];
   STATE 7478 [sym_literalNumber]; STATE 7742 [sym__literalInt; sym__literalFloat];
   STATE 1380 [sym__ppIf]; STATE 6327 [sym__ppStatementBlock];
   STATE 11840 [aux_sym_labeledStatement_repeat1]; STATE 863 [aux_sym__statementsTr_repeat1];
   STATE 6664 [aux_sym_literalString_repeat1]; ACTIONS 397 [anon_sym_SEMI];
   ACTIONS 1212 [anon_sym_COLON]; ACTIONS 399 [anon_sym_LBRACK]; ACTIONS 401 [anon_sym_LPAREN];
   ACTIONS 403 [aux_sym__literalString_token1]; ACTIONS 405 [anon_sym_POUND];
   ACTIONS 407 [aux_sym__literalInt_token1]; ACTIONS 409 [aux_sym__literalInt_token2;
   aux_sym__literalInt_token3]; ACTIONS 407 [aux_sym__literalFloat_token1];
   ACTIONS 411 [aux_sym_ppUsesBlock_token1]; ACTIONS 413 [sym_kAdd; sym_kSub];
   ACTIONS 415 [sym_kAt]; ACTIONS 417 [sym_kTrue; sym_kFalse]; ACTIONS 419 [sym_labelNumber];
   ACTIONS 3 [sym__space]; ACTIONS 5 [sym_ppDirective]; ACTIONS 3 [sym_comment];
   ACTIONS 417 [sym_ppFragmentExpr]; ACTIONS 397 [sym_ppFragmentStmt];
   ACTIONS 403 [sym__literalStringMultiline]; ACTIONS 421 [sym_identifier];
   ACTIONS 423 [sym_kSpecialize]; ACTIONS 427 [sym_kAsm]; ACTIONS 429 [sym_kBegin];
   ACTIONS 431 [sym_kCase]; ACTIONS 433 [sym_kConst]; ACTIONS 1214 [sym_kEnd];
   ACTIONS 437 [sym_kFor]; ACTIONS 439 [sym_kFunction]; ACTIONS 441 [sym_kGoto];
   ACTIONS 443 [sym_kIf]; ACTIONS 445 [sym_kInherited]; ACTIONS 417 [sym_kNil];
   ACTIONS 415 [sym_kNot]; ACTIONS 439 [sym_kProcedure]; ACTIONS 447 [sym_kRaise];
   ACTIONS 449 [sym_kRepeat]; ACTIONS 451 [sym_kString]; ACTIONS 453 [sym_kTry];
   ACTIONS 455 [sym_kVar]; ACTIONS 457 [sym_kWhile]; ACTIONS 459 [sym_kWith]].

(** State 189. *)
Definition ts_parse_table_189 : parse_row :=
  [STATE 6213 [sym_if]; STATE 6327 [sym_ifElse; sym_while; sym_repeat; sym_for; sym_foreach;
   sym_try; sym_case; sym_block; sym_asm; sym_with; sym_raise; sym_statement; sym_goto;
   sym__statement]; STATE 15991 [sym_ifTr; sym_ifElseTr; sym_whileTr; sym_repeatTr; sym_forTr;
   sym_foreachTr; sym_tryTr; sym_caseTr]; STATE 14251 [sym_blockTr]; STATE 15991 [sym_asmTr;
   sym_withTr; sym_raiseTr; sym_statementTr; sym_gotoTr; sym__statementTr];
   STATE 13915 [sym_assignment]; STATE 11785 [sym_varAssignDef]; STATE 13915 [sym_varDef;
   sym_constDef]; STATE 6166 [sym_label]; STATE 15991 [sym__statementsTr];
   STATE 14903 [sym_statementsTr]; STATE 8019 [sym__expr; sym_exprConditional];
   STATE 7478 [sym__ref; sym_lambda; sym_inherited; sym_exprDot; sym_exprDeref; sym_exprAs;
   sym_exprTpl; sym_exprSubscript; sym_exprCall]; STATE 8019 [sym_exprBinary; sym_exprUnary];
   STATE 7478 [sym_exprParens; sym_exprBrackets; sym__literal; sym_literalString];
   STATE 6664 [sym__literalString; sym_literalChar]; STATE 7478 [sym_literalNumber];
   STATE 7742 [sym__literalInt; sym__literalFloat]; STATE 1380 [sym__ppIf];
   STATE 6327 [sym__ppStatementBlock]; STATE 11840 [aux_sym_labeledStatement_repeat1];
   STATE 863 [aux_sym__statementsTr_repeat1]; STATE 6664 [aux_sym_literalString_repeat1];
   ACTIONS 397 [anon_sym_SEMI]; ACTIONS 399 [anon_sym_LBRACK]; ACTIONS 401 [anon_sym_LPAREN];
   ACTIONS 403 [aux_sym__literalString_token1]; ACTIONS 405 [anon_sym_POUND];
   ACTIONS 407 [aux_sym__literalInt_token1]; ACTIONS 409 [aux_sym__literalInt_token2;
   aux_sym__literalInt_token3]; ACTIONS 407 [aux_sym__literalFloat_token1];
   ACTIONS 411 [aux_sym_ppUsesBlock_token1]; ACTIONS 413 [sym_kAdd; sym_kSub];
   ACTIONS 415 [sym_kAt]; ACTIONS 417 [sym_kTrue; sym_kFalse]; ACTIONS 419 [sym_labelNumber];
   ACTIONS 3 [sym__space]; ACTIONS 5 [sym_ppDirective]; ACTIONS 3 [sym_comment];
   ACTIONS 417 [sym_ppFragmentExpr]; ACTIONS 397 [sym_ppFragmentStmt];
   ACTIONS 403 [sym__literalStringMultiline]; ACTIONS 421 [sym_identifier];
   ACTIONS 423 [sym_kSpecialize]; ACTIONS 427 [sym_kAsm]; ACTIONS 429 [sym_kBegin];
   ACTIONS 431 [sym_kCase]; ACTIONS 433 [sym_kConst]; ACTIONS 1216 [sym_kEnd];
   ACTIONS 437 [sym_kFor]; ACTIONS 439 [sym_kFunction]; ACTIONS 441 [sym_kGoto];
   ACTIONS 443 [sym_kIf]; ACTIONS 445 [sym_kInherited]; ACTIONS 417 [sym_kNil];
   ACTIONS 415 [sym_kNot]; ACTIONS 439 [sym_kProcedure]; ACTIONS 447 [sym_kRaise];
   ACTIONS 449 [sym_kRepeat]; ACTIONS 451 [sym_kString]; ACTIONS 453 [sym_kTry];
   ACTIONS 455 [sym_kVar]; ACTIONS 457 [sym_kWhile]; ACTIONS 459 [sym_kWith]].

(** State 190. *)
Definition ts_parse_table_190 : parse_row :=
  [STATE 6213 [sym_if]; STATE 6327 [sym_ifElse; sym_while; sym_repeat; sym_for; sym_foreach;
   sym_try; sym_case; sym_block; sym_asm; sym_with; sym_raise; sym_statement; sym_goto;
   sym__statement]; STATE 15644 [sym_ifTr; sym_ifElseTr; sym_whileTr; sym_repeatTr; sym_forTr;
   sym_foreachTr; sym_tryTr; sym_caseTr]; STATE 14251 [sym_blockTr]; STATE 15644 [sym_asmTr;
   sym_withTr; sym_raiseTr; sym_statementTr; sym_gotoTr; sym__statementTr];
   STATE 13915 [sym_assignment]; STATE 11785 [sym_varAssignDef]; STATE 13915 [sym_varDef;
   sym_constDef]; STATE 6166 [sym_label]; STATE 15644 [sym__statementsTr]; STATE 8019 [sym__expr;
   sym_exprConditional]; STATE 7478 [sym__ref; sym_lambda; sym_inherited; sym_exprDot;
   sym_exprDeref; sym_exprAs; sym_exprTpl; sym_exprSubscript; sym_exprCall];
   STATE 8019 [sym_exprBinary; sym_exprUnary]; STATE 7478 [sym_exprParens; sym_exprBrackets;
   sym__literal; sym_literalString]; STATE 6664 [sym__literalString; sym_literalChar];
   STATE 7478 [sym_literalNumber]; STATE 7742 [sym__literalInt; sym__literalFloat];
   STATE 1380 [sym__ppIf]; STATE 6327 [sym__ppStatementBlock];
   STATE 11840 [aux_sym_labeledStatement_repeat1]; STATE 863 [aux_sym__statementsTr_repeat1];
   STATE 6664 [aux_sym_literalString_repeat1]; ACTIONS 397 [anon_sym_SEMI];
   ACTIONS 1218 [anon_sym_COLON]; ACTIONS 399 [anon_sym_LBRACK]; ACTIONS 401 [anon_sym_LPAREN];
   ACTIONS 403 [aux_sym__literalString_token1]; ACTIONS 405 [anon_sym_POUND];
   ACTIONS 407 [aux_sym__literalInt_token1]; ACTIONS 409 [aux_sym__literalInt_token2;
   aux_sym__literalInt_token3]; ACTIONS 407 [aux_sym__literalFloat_token1];
   ACTIONS 411 [aux_sym_ppUsesBlock_token1]; ACTIONS 413 [sym_kAdd; sym_kSub];
   ACTIONS 415 [sym_kAt]; ACTIONS 417 [sym_kTrue; sym_kFalse]; ACTIONS 419 [sym_labelNumber];
   ACTIONS 3 [sym__space]; ACTIONS 5 [sym_ppDirective]; ACTIONS 3 [sym_comment];
   ACTIONS 417 [sym_ppFragmentExpr]; ACTIONS 397 [sym_ppFragmentStmt];
   ACTIONS 403 [sym__literalStringMultiline]; ACTIONS 421 [sym_identifier];
   ACTIONS 423 [sym_kSpecialize]; ACTIONS 427 [sym_kAsm]; ACTIONS 429 [sym_kBegin];
   ACTIONS 431 [sym_kCase]; ACTIONS 433 [sym_kConst]; ACTIONS 1220 [sym_kEnd];
   ACTIONS 437 [sym_kFor]; ACTIONS 439 [sym_kFunction]; ACTIONS 441 [sym_kGoto];
   ACTIONS 443 [sym_kIf]; ACTIONS 445 [sym_kInherited]; ACTIONS 417 [sym_kNil];
   ACTIONS 415 [sym_kNot]; ACTIONS 439 [sym_kProcedure]; ACTIONS 447 [sym_kRaise];
   ACTIONS 449 [sym_kRepeat]; ACTIONS 451 [sym_kString]; ACTIONS 453 [sym_kTry];
   ACTIONS 455 [sym_kVar]; ACTIONS 457 [sym_kWhile]; ACTIONS 459 [sym_kWith]].

(** State 191. *)
Definition ts_parse_table_191 : parse_row :=
  [STATE 6213 [sym_if]; STATE 6327 [sym_ifElse; sym_while; sym_repeat; sym_for; sym_foreach;
   sym_try; sym_case; sym_block; sym_asm; sym_with; sym_raise; sym_statement; sym_goto;
   sym__statement]; STATE 14317 [sym_ifTr; sym_ifElseTr; sym_whileTr; sym_repeatTr; sym_forTr;
   sym_foreachTr; sym_tryTr; sym_caseTr]; STATE 14251 [sym_blockTr]; STATE 14317 [sym_asmTr;
   sym_withTr; sym_raiseTr; sym_statementTr; sym_gotoTr; sym__statementTr];
   STATE 13915 [sym_assignment]; STATE 11785 [sym_varAssignDef]; STATE 13915 [sym_varDef;
   sym_constDef]; STATE 6166 [sym_label]; STATE 14317 [sym__statementsTr]; STATE 8019 [sym__expr;
   sym_exprConditional]; STATE 7478 [sym__ref; sym_lambda; sym_inherited; sym_exprDot;
   sym_exprDeref; sym_exprAs; sym_exprTpl; sym_exprSubscript; sym_exprCall];
   STATE 8019 [sym_exprBinary; sym_exprUnary]; STATE 7478 [sym_exprParens; sym_exprBrackets;
   sym__literal; sym_literalString]; STATE 6664 [sym__literalString; sym_literalChar];
   STATE 7478 [sym_literalNumber]; STATE 7742 [sym__literalInt; sym__literalFloat];
   STATE 1380 [sym__ppIf]; STATE 6327 [sym__ppStatementBlock];
   STATE 11840 [aux_sym_labeledStatement_repeat1]; STATE 863 [aux_sym__statementsTr_repeat1];
   STATE 6664 [aux_sym_literalString_repeat1]; ACTIONS 397 [anon_sym_SEMI];
   ACTIONS 1222 [anon_sym_COLON]; ACTIONS 399 [anon_sym_LBRACK]; ACTIONS 401 [anon_sym_LPAREN];
   ACTIONS 403 [aux_sym__literalString_token1]; ACTIONS 405 [anon_sym_POUND];
   ACTIONS 407 [aux_sym__literalInt_token1]; ACTIONS 409 [aux_sym__literalInt_token2;
   aux_sym__literalInt_token3]; ACTIONS 407 [aux_sym__literalFloat_token1];
   ACTIONS 411 [aux_sym_ppUsesBlock_token1]; ACTIONS 413 [sym_kAdd; sym_kSub];
   ACTIONS 415 [sym_kAt]; ACTIONS 417 [sym_kTrue; sym_kFalse]; ACTIONS 419 [sym_labelNumber];
   ACTIONS 3 [sym__space]; ACTIONS 5 [sym_ppDirective]; ACTIONS 3 [sym_comment];
   ACTIONS 417 [sym_ppFragmentExpr]; ACTIONS 397 [sym_ppFragmentStmt];
   ACTIONS 403 [sym__literalStringMultiline]; ACTIONS 421 [sym_identifier];
   ACTIONS 423 [sym_kSpecialize]; ACTIONS 427 [sym_kAsm]; ACTIONS 429 [sym_kBegin];
   ACTIONS 431 [sym_kCase]; ACTIONS 433 [sym_kConst]; ACTIONS 1224 [sym_kEnd];
   ACTIONS 437 [sym_kFor]; ACTIONS 439 [sym_kFunction]; ACTIONS 441 [sym_kGoto];
   ACTIONS 443 [sym_kIf]; ACTIONS 445 [sym_kInherited]; ACTIONS 417 [sym_kNil];
   ACTIONS 415 [sym_kNot]; ACTIONS 439 [sym_kProcedure]; ACTIONS 447 [sym_kRaise];
   ACTIONS 449 [sym_kRepeat]; ACTIONS 451 [sym_kString]; ACTIONS 453 [sym_kTry];
   ACTIONS 455 [sym_kVar]; ACTIONS 457 [sym_kWhile]; ACTIONS 459 [sym_kWith]].

(** State 192. *)
Definition ts_parse_table_192 : parse_row :=
  [STATE 6213 [sym_if]; STATE 6327 [sym_ifElse; sym_while; sym_repeat; sym_for; sym_foreach;
   sym_try; sym_case; sym_block; sym_asm; sym_with; sym_raise; sym_statement; sym_goto;
   sym__statement]; STATE 14569 [sym_ifTr; sym_ifElseTr; sym_whileTr; sym_repeatTr; sym_forTr;
   sym_foreachTr; sym_tryTr; sym_caseTr]; STATE 14251 [sym_blockTr]; STATE 14569 [sym_asmTr;
   sym_withTr; sym_raiseTr; sym_statementTr; sym_gotoTr; sym__statementTr];
   STATE 13915 [sym_assignment]; STATE 11785 [sym_varAssignDef]; STATE 13915 [sym_varDef;
   sym_constDef]; STATE 6166 [sym_label]; STATE 14569 [sym__statementsTr]; STATE 8019 [sym__expr;
   sym_exprConditional]; STATE 7478 [sym__ref; sym_lambda; sym_inherited; sym_exprDot;
   sym_exprDeref; sym_exprAs; sym_exprTpl; sym_exprSubscript; sym_exprCall];
   STATE 8019 [sym_exprBinary; sym_exprUnary]; STATE 7478 [sym_exprParens; sym_exprBrackets;
   sym__literal; sym_literalString]; STATE 6664 [sym__literalString; sym_literalChar];
   STATE 7478 [sym_literalNumber]; STATE 7742 [sym__literalInt; sym__literalFloat];
   STATE 1380 [sym__ppIf]; STATE 6327 [sym__ppStatementBlock];
   STATE 11840 [aux_sym_labeledStatement_repeat1]; STATE 863 [aux_sym__statementsTr_repeat1];
   STATE 6664 [aux_sym_literalString_repeat1]; ACTIONS 397 [anon_sym_SEMI];
   ACTIONS 1226 [anon_sym_COLON]; ACTIONS 399 [anon_sym_LBRACK]; ACTIONS 401 [anon_sym_LPAREN];
   ACTIONS 403 [aux_sym__literalString_token1]; ACTIONS 405 [anon_sym_POUND];
   ACTIONS 407 [aux_sym__literalInt_token1]; ACTIONS 409 [aux_sym__literalInt_token2;
   aux_sym__literalInt_token3]; ACTIONS 407 [aux_sym__literalFloat_token1];
   ACTIONS 411 [aux_sym_ppUsesBlock_token1]; ACTIONS 413 [sym_kAdd; sym_kSub];
   ACTIONS 415 [sym_kAt]; ACTIONS 417 [sym_kTrue; sym_kFalse]; ACTIONS 419 [sym_labelNumber];
   ACTIONS 3 [sym__space]; ACTIONS 5 [sym_ppDirective]; ACTIONS 3 [sym_comment];
   ACTIONS 417 [sym_ppFragmentExpr]; ACTIONS 397 [sym_ppFragmentStmt];
   ACTIONS 403 [sym__literalStringMultiline]; ACTIONS 421 [sym_identifier];
   ACTIONS 423 [sym_kSpecialize]; ACTIONS 427 [sym_kAsm]; ACTIONS 429 [sym_kBegin];
   ACTIONS 431 [sym_kCase]; ACTIONS 433 [sym_kConst]; ACTIONS 1228 [sym_kEnd];
   ACTIONS 437 [sym_kFor]; ACTIONS 439 [sym_kFunction]; ACTIONS 441 [sym_kGoto];
   ACTIONS 443 [sym_kIf]; ACTIONS 445 [sym_kInherited]; ACTIONS 417 [sym_kNil];
   ACTIONS 415 [sym_kNot]; ACTIONS 439 [sym_kProcedure]; ACTIONS 447 [sym_kRaise];
   ACTIONS 449 [sym_kRepeat]; ACTIONS 451 [sym_kString]; ACTIONS 453 [sym_kTry];
   ACTIONS 455 [sym_kVar]; ACTIONS 457 [sym_kWhile]; ACTIONS 459 [sym_kWith]].

(** State 193. *)
Definition ts_parse_table_193 : parse_row :=
  [STATE 6213 [sym_if]; STATE 6327 [sym_ifElse; sym_while; sym_repeat; sym_for; sym_foreach;
   sym_try; sym_case; sym_block; sym_asm; sym_with; sym_raise; sym_statement; sym_goto;
   sym__statement]; STATE 15543 [sym_ifTr; sym_ifElseTr; sym_whileTr; sym_repeatTr; sym_forTr;
   sym_foreachTr; sym_tryTr; sym_caseTr]; STATE 14251 [sym_blockTr]; STATE 15543 [sym_asmTr;
   sym_withTr; sym_raiseTr; sym_statementTr; sym_gotoTr; sym__statementTr];
   STATE 13915 [sym_assignment]; STATE 11785 [sym_varAssignDef]; STATE 13915 [sym_varDef;
   sym_constDef]; STATE 6166 [sym_label]; STATE 15543 [sym__statementsTr]; STATE 8019 [sym__expr;
   sym_exprConditional]; STATE 7478 [sym__ref; sym_lambda; sym_inherited; sym_exprDot;
   sym_exprDeref; sym_exprAs; sym_exprTpl; sym_exprSubscript; sym_exprCall];
   STATE 8019 [sym_exprBinary; sym_exprUnary]; STATE 7478 [sym_exprParens; sym_exprBrackets;
   sym__literal; sym_literalString]; STATE 6664 [sym__literalString; sym_literalChar];
   STATE 7478 [sym_literalNumber]; STATE 7742 [sym__literalInt; sym__literalFloat];
   STATE 1380 [sym__ppIf]; STATE 6327 [sym__ppStatementBlock];
   STATE 11840 [aux_sym_labeledStatement_repeat1]; STATE 863 [aux_sym__statementsTr_repeat1];
   STATE 6664 [aux_sym_literalString_repeat1]; ACTIONS 397 [anon_sym_SEMI];
   ACTIONS 1230 [anon_sym_COLON]; ACTIONS 399 [anon_sym_LBRACK]; ACTIONS 401 [anon_sym_LPAREN];
   ACTIONS 403 [aux_sym__literalString_token1]; ACTIONS 405 [anon_sym_POUND];
   ACTIONS 407 [aux_sym__literalInt_token1]; ACTIONS 409 [aux_sym__literalInt_token2;
   aux_sym__literalInt_token3]; ACTIONS 407 [aux_sym__literalFloat_token1];
   ACTIONS 411 [aux_sym_ppUsesBlock_token1]; ACTIONS 413 [sym_kAdd; sym_kSub];
   ACTIONS 415 [sym_kAt]; ACTIONS 417 [sym_kTrue; sym_kFalse]; ACTIONS 419 [sym_labelNumber];
   ACTIONS 3 [sym__space]; ACTIONS 5 [sym_ppDirective]; ACTIONS 3 [sym_comment];
   ACTIONS 417 [sym_ppFragmentExpr]; ACTIONS 397 [sym_ppFragmentStmt];
   ACTIONS 403 [sym__literalStringMultiline]; ACTIONS 421 [sym_identifier];
   ACTIONS 423 [sym_kSpecialize]; ACTIONS 427 [sym_kAsm]; ACTIONS 429 [sym_kBegin];
   ACTIONS 431 [sym_kCase]; ACTIONS 433 [sym_kConst]; ACTIONS 1232 [sym_kEnd];
   ACTIONS 437 [sym_kFor]; ACTIONS 439 [sym_kFunction]; ACTIONS 441 [sym_kGoto];
   ACTIONS 443 [sym_kIf]; ACTIONS 445 [sym_kInherited]; ACTIONS 417 [sym_kNil];
   ACTIONS 415 [sym_kNot]; ACTIONS 439 [sym_kProcedure]; ACTIONS 447 [sym_kRaise];
   ACTIONS 449 [sym_kRepeat]; ACTIONS 451 [sym_kString]; ACTIONS 453 [sym_kTry];
   ACTIONS 455 [sym_kVar]; ACTIONS 457 [sym_kWhile]; ACTIONS 459 [sym_kWith]].

(** State 194. *)
Definition ts_parse_table_194 : parse_row :=
  [STATE 6213 [sym_if]; STATE 6327 [sym_ifElse; sym_while; sym_repeat; sym_for; sym_foreach;
   sym_try; sym_case; sym_block; sym_asm; sym_with; sym_raise; sym_statement; sym_goto;
   sym__statement]; STATE 15945 [sym_ifTr; sym_ifElseTr; sym_whileTr; sym_repeatTr; sym_forTr;
   sym_foreachTr; sym_tryTr; sym_caseTr]; STATE 14251 [sym_blockTr]; STATE 15945 [sym_asmTr;
   sym_withTr; sym_raiseTr; sym_statementTr; sym_gotoTr; sym__statementTr];
   STATE 13915 [sym_assignment]; STATE 11785 [sym_varAssignDef]; STATE 13915 [sym_varDef;
   sym_constDef]; STATE 6166 [sym_label]; STATE 15945 [sym__statementsTr]; STATE 8019 [sym__expr;
   sym_exprConditional]; STATE 7478 [sym__ref; sym_lambda; sym_inherited; sym_exprDot;
   sym_exprDeref; sym_exprAs; sym_exprTpl; sym_exprSubscript; sym_exprCall];
   STATE 8019 [sym_exprBinary; sym_exprUnary]; STATE 7478 [sym_exprParens; sym_exprBrackets;
   sym__literal; sym_literalString]; STATE 6664 [sym__literalString; sym_literalChar];
   STATE 7478 [sym_literalNumber]; STATE 7742 [sym__literalInt; sym__literalFloat];
   STATE 1380 [sym__ppIf]; STATE 6327 [sym__ppStatementBlock];
   STATE 11840 [aux_sym_labeledStatement_repeat1]; STATE 863 [aux_sym__statementsTr_repeat1];
   STATE 6664 [aux_sym_literalString_repeat1]; ACTIONS 397 [anon_sym_SEMI];
   ACTIONS 1234 [anon_sym_COLON]; ACTIONS 399 [anon_sym_LBRACK]; ACTIONS 401 [anon_sym_LPAREN];
   ACTIONS 403 [aux_sym__literalString_token1]; ACTIONS 405 [anon_sym_POUND];
   ACTIONS 407 [aux_sym__literalInt_token1]; ACTIONS 409 [aux_sym__literalInt_token2;
   aux_sym__literalInt_token3]; ACTIONS 407 [aux_sym__literalFloat_token1];
   ACTIONS 411 [aux_sym_ppUsesBlock_token1]; ACTIONS 413 [sym_kAdd; sym_kSub];
   ACTIONS 415 [sym_kAt]; ACTIONS 417 [sym_kTrue; sym_kFalse]; ACTIONS 419 [sym_labelNumber];
   ACTIONS 3 [sym__space]; ACTIONS 5 [sym_ppDirective]; ACTIONS 3 [sym_comment];
   ACTIONS 417 [sym_ppFragmentExpr]; ACTIONS 397 [sym_ppFragmentStmt];
   ACTIONS 403 [sym__literalStringMultiline]; ACTIONS 421 [sym_identifier];
   ACTIONS 423 [sym_kSpecialize]; ACTIONS 427 [sym_kAsm]; ACTIONS 429 [sym_kBegin];
   ACTIONS 431 [sym_kCase]; ACTIONS 433 [sym_kConst]; ACTIONS 1236 [sym_kEnd];
   ACTIONS 437 [sym_kFor]; ACTIONS 439 [sym_kFunction]; ACTIONS 441 [sym_kGoto];
   ACTIONS 443 [sym_kIf]; ACTIONS 445 [sym_kInherited]; ACTIONS 417 [sym_kNil];
   ACTIONS 415 [sym_kNot]; ACTIONS 439 [sym_kProcedure]; ACTIONS 447 [sym_kRaise];
   ACTIONS 449 [sym_kRepeat]; ACTIONS 451 [sym_kString]; ACTIONS 453 [sym_kTry];
   ACTIONS 455 [sym_kVar]; ACTIONS 457 [sym_kWhile]; ACTIONS 459 [sym_kWith]].

(** State 195. *)
Definition ts_parse_table_195 : parse_row :=
  [STATE 6213 [sym_if]; STATE 6327 [sym_ifElse; sym_while; sym_repeat; sym_for; sym_foreach;
   sym_try; sym_case; sym_block; sym_asm; sym_with; sym_raise; sym_statement; sym_goto;
   sym__statement]; STATE 15991 [sym_ifTr; sym_ifElseTr; sym_whileTr; sym_repeatTr; sym_forTr;
   sym_foreachTr; sym_tryTr; sym_caseTr]; STATE 14251 [sym_blockTr]; STATE 15991 [sym_asmTr;
   sym_withTr; sym_raiseTr; sym_statementTr; sym_gotoTr; sym__statementTr];
   STATE 13915 [sym_assignment]; STATE 11785 [sym_varAssignDef]; STATE 13915 [sym_varDef;
   sym_constDef]; STATE 6166 [sym_label]; STATE 15991 [sym__statementsTr];
   STATE 15783 [sym_statementsTr]; STATE 8019 [sym__expr; sym_exprConditional];
   STATE 7478 [sym__ref; sym_lambda; sym_inherited; sym_exprDot; sym_exprDeref; sym_exprAs;
   sym_exprTpl; sym_exprSubscript; sym_exprCall]; STATE 8019 [sym_exprBinary; sym_exprUnary];
   STATE 7478 [sym_exprParens; sym_exprBrackets; sym__literal; sym_literalString];
   STATE 6664 [sym__literalString; sym_literalChar]; STATE 7478 [sym_literalNumber];
   STATE 7742 [sym__literalInt; sym__literalFloat]; STATE 1380 [sym__ppIf];
   STATE 6327 [sym__ppStatementBlock]; STATE 11840 [aux_sym_labeledStatement_repeat1];
   STATE 863 [aux_sym__statementsTr_repeat1]; STATE 6664 [aux_sym_literalString_repeat1];
   ACTIONS 397 [anon_sym_SEMI]; ACTIONS 399 [anon_sym_LBRACK]; ACTIONS 401 [anon_sym_LPAREN];
   ACTIONS 403 [aux_sym__literalString_token1]; ACTIONS 405 [anon_sym_POUND];
   ACTIONS 407 [aux_sym__literalInt_token1]; ACTIONS 409 [aux_sym__literalInt_token2;
   aux_sym__literalInt_token3]; ACTIONS 407 [aux_sym__literalFloat_token1];
   ACTIONS 411 [aux_sym_ppUsesBlock_token1]; ACTIONS 413 [sym_kAdd; sym_kSub];
   ACTIONS 415 [sym_kAt]; ACTIONS 417 [sym_kTrue; sym_kFalse]; ACTIONS 419 [sym_labelNumber];
   ACTIONS 3 [sym__space]; ACTIONS 5 [sym_ppDirective]; ACTIONS 3 [sym_comment];
   ACTIONS 417 [sym_ppFragmentExpr]; ACTIONS 397 [sym_ppFragmentStmt];
   ACTIONS 403 [sym__literalStringMultiline]; ACTIONS 421 [sym_identifier];
   ACTIONS 423 [sym_kSpecialize]; ACTIONS 427 [sym_kAsm]; ACTIONS 429 [sym_kBegin];
   ACTIONS 431 [sym_kCase]; ACTIONS 433 [sym_kConst]; ACTIONS 1238 [sym_kEnd];
   ACTIONS 437 [sym_kFor]; ACTIONS 439 [sym_kFunction]; ACTIONS 441 [sym_kGoto];
   ACTIONS 443 [sym_kIf]; ACTIONS 445 [sym_kInherited]; ACTIONS 417 [sym_kNil];
   ACTIONS 415 [sym_kNot]; ACTIONS 439 [sym_kProcedure]; ACTIONS 447 [sym_kRaise];
   ACTIONS 449 [sym_kRepeat]; ACTIONS 451 [sym_kString]; ACTIONS 453 [sym_kTry];
   ACTIONS 455 [sym_kVar]; ACTIONS 457 [sym_kWhile]; ACTIONS 459 [sym_kWith]].

(** State 196. *)
Definition ts_parse_table_196 : parse_row :=
  [STATE 6213 [sym_if]; STATE 6327 [sym_ifElse; sym_while; sym_repeat; sym_for; sym_foreach;
   sym_try; sym_case; sym_block; sym_asm; sym_with; sym_raise; sym_statement; sym_goto;
   sym__statement]; STATE 15991 [sym_ifTr; sym_ifElseTr; sym_whileTr; sym_repeatTr; sym_forTr;
   sym_foreachTr; sym_tryTr; sym_caseTr]; STATE 14251 [sym_blockTr]; STATE 15991 [sym_asmTr;
   sym_withTr; sym_raiseTr; sym_statementTr; sym_gotoTr; sym__statementTr];
   STATE 13915 [sym_assignment]; STATE 11785 [sym_varAssignDef]; STATE 13915 [sym_varDef;
   sym_constDef]; STATE 6166 [sym_label]; STATE 15991 [sym__statementsTr];
   STATE 14280 [sym_statementsTr]; STATE 8019 [sym__expr; sym_exprConditional];
   STATE 7478 [sym__ref; sym_lambda; sym_inherited; sym_exprDot; sym_exprDeref; sym_exprAs;
   sym_exprTpl; sym_exprSubscript; sym_exprCall]; STATE 8019 [sym_exprBinary; sym_exprUnary];
   STATE 7478 [sym_exprParens; sym_exprBrackets; sym__literal; sym_literalString];
   STATE 6664 [sym__literalString; sym_literalChar]; STATE 7478 [sym_literalNumber];
   STATE 7742 [sym__literalInt; sym__literalFloat]; STATE 1380 [sym__ppIf];
   STATE 6327 [sym__ppStatementBlock]; STATE 11840 [aux_sym_labeledStatement_repeat1];
   STATE 863 [aux_sym__statementsTr_repeat1]; STATE 6664 [aux_sym_literalString_repeat1];
   ACTIONS 397 [anon_sym_SEMI]; ACTIONS 399 [anon_sym_LBRACK]; ACTIONS 401 [anon_sym_LPAREN];
   ACTIONS 403 [aux_sym__literalString_token1]; ACTIONS 405 [anon_sym_POUND];
   ACTIONS 407 [aux_sym__literalInt_token1]; ACTIONS 409 [aux_sym__literalInt_token2;
   aux_sym__literalInt_token3]; ACTIONS 407 [aux_sym__literalFloat_token1];
   ACTIONS 411 [aux_sym_ppUsesBlock_token1]; ACTIONS 413 [sym_kAdd; sym_kSub];
   ACTIONS 415 [sym_kAt]; ACTIONS 417 [sym_kTrue; sym_kFalse]; ACTIONS 419 [sym_labelNumber];
   ACTIONS 3 [sym__space]; ACTIONS 5 [sym_ppDirective]; ACTIONS 3 [sym_comment];
   ACTIONS 417 [sym_ppFragmentExpr]; ACTIONS 397 [sym_ppFragmentStmt];
   ACTIONS 403 [sym__literalStringMultiline]; ACTIONS 421 [sym_identifier];
   ACTIONS 423 [sym_kSpecialize]; ACTIONS 427 [sym_kAsm]; ACTIONS 429 [sym_kBegin];
   ACTIONS 431 [sym_kCase]; ACTIONS 433 [sym_kConst]; ACTIONS 1240 [sym_kEnd];
   ACTIONS 437 [sym_kFor]; ACTIONS 439 [sym_kFunction]; ACTIONS 441 [sym_kGoto];
   ACTIONS 443 [sym_kIf]; ACTIONS 445 [sym_kInherited]; ACTIONS 417 [sym_kNil];
   ACTIONS 415 [sym_kNot]; ACTIONS 439 [sym_kProcedure]; ACTIONS 447 [sym_kRaise];
   ACTIONS 449 [sym_kRepeat]; ACTIONS 451 [sym_kString]; ACTIONS 453 [sym_kTry];
   ACTIONS 455 [sym_kVar]; ACTIONS 457 [sym_kWhile]; ACTIONS 459 [sym_kWith]].

(** State 197. *)
Definition ts_parse_table_197 : parse_row :=
  [STATE 6213 [sym_if]; STATE 6327 [sym_ifElse; sym_while; sym_repeat; sym_for; sym_foreach;
   sym_try; sym_case; sym_block; sym_asm; sym_with; sym_raise; sym_statement; sym_goto;
   sym__statement]; STATE 14498 [sym_ifTr; sym_ifElseTr; sym_whileTr; sym_repeatTr; sym_forTr;
   sym_foreachTr; sym_tryTr; sym_caseTr]; STATE 14251 [sym_blockTr]; STATE 14498 [sym_asmTr;
   sym_withTr; sym_raiseTr; sym_statementTr; sym_gotoTr; sym__statementTr];
   STATE 13915 [sym_assignment]; STATE 11785 [sym_varAssignDef]; STATE 13915 [sym_varDef;
   sym_constDef]; STATE 6166 [sym_label]; STATE 14498 [sym__statementsTr]; STATE 8019 [sym__expr;
   sym_exprConditional]; STATE 7478 [sym__ref; sym_lambda; sym_inherited; sym_exprDot;
   sym_exprDeref; sym_exprAs; sym_exprTpl; sym_exprSubscript; sym_exprCall];
   STATE 8019 [sym_exprBinary; sym_exprUnary]; STATE 7478 [sym_exprParens; sym_exprBrackets;
   sym__literal; sym_literalString]; STATE 6664 [sym__literalString; sym_literalChar];
   STATE 7478 [sym_literalNumber]; STATE 7742 [sym__literalInt; sym__literalFloat];
   STATE 1380 [sym__ppIf]; STATE 6327 [sym__ppStatementBlock];
   STATE 11840 [aux_sym_labeledStatement_repeat1]; STATE 863 [aux_sym__statementsTr_repeat1];
   STATE 6664 [aux_sym_literalString_repeat1]; ACTIONS 397 [anon_sym_SEMI];
   ACTIONS 1242 [anon_sym_COLON]; ACTIONS 399 [anon_sym_LBRACK]; ACTIONS 401 [anon_sym_LPAREN];
   ACTIONS 403 [aux_sym__literalString_token1]; ACTIONS 405 [anon_sym_POUND];
   ACTIONS 407 [aux_sym__literalInt_token1]; ACTIONS 409 [aux_sym__literalInt_token2;
   aux_sym__literalInt_token3]; ACTIONS 407 [aux_sym__literalFloat_token1];
   ACTIONS 411 [aux_sym_ppUsesBlock_token1]; ACTIONS 413 [sym_kAdd; sym_kSub];
   ACTIONS 415 [sym_kAt]; ACTIONS 417 [sym_kTrue; sym_kFalse]; ACTIONS 419 [sym_labelNumber];
   ACTIONS 3 [sym__space]; ACTIONS 5 [sym_ppDirective]; ACTIONS 3 [sym_comment];
   ACTIONS 417 [sym_ppFragmentExpr]; ACTIONS 397 [sym_ppFragmentStmt];
   ACTIONS 403 [sym__literalStringMultiline]; ACTIONS 421 [sym_identifier];
   ACTIONS 423 [sym_kSpecialize]; ACTIONS 427 [sym_kAsm]; ACTIONS 429 [sym_kBegin];
   ACTIONS 431 [sym_kCase]; ACTIONS 433 [sym_kConst]; ACTIONS 1244 [sym_kEnd];
   ACTIONS 437 [sym_kFor]; ACTIONS 439 [sym_kFunction]; ACTIONS 441 [sym_kGoto];
   ACTIONS 443 [sym_kIf]; ACTIONS 445 [sym_kInherited]; ACTIONS 417 [sym_kNil];
   ACTIONS 415 [sym_kNot]; ACTIONS 439 [sym_kProcedure]; ACTIONS 447 [sym_kRaise];
   ACTIONS 449 [sym_kRepeat]; ACTIONS 451 [sym_kString]; ACTIONS 453 [sym_kTry];
   ACTIONS 455 [sym_kVar]; ACTIONS 457 [sym_kWhile]; ACTIONS 459 [sym_kWith]].

(** State 198. *)
Definition ts_parse_table_198 : parse_row :=
  [STATE 6213 [sym_if]; STATE 6327 [sym_ifElse; sym_while; sym_repeat; sym_for; sym_foreach;
   sym_try; sym_case; sym_block; sym_asm; sym_with; sym_raise; sym_statement; sym_goto;
   sym__statement]; STATE 14716 [sym_ifTr; sym_ifElseTr; sym_whileTr; sym_repeatTr; sym_forTr;
   sym_foreachTr; sym_tryTr; sym_caseTr]; STATE 14251 [sym_blockTr]; STATE 14716 [sym_asmTr;
   sym_withTr; sym_raiseTr; sym_statementTr; sym_gotoTr; sym__statementTr];
   STATE 13915 [sym_assignment]; STATE 11785 [sym_varAssignDef]; STATE 13915 [sym_varDef;
   sym_constDef]; STATE 6166 [sym_label]; STATE 14716 [sym__statementsTr]; STATE 8019 [sym__expr;
   sym_exprConditional]; STATE 7478 [sym__ref; sym_lambda; sym_inherited; sym_exprDot;
   sym_exprDeref; sym_exprAs; sym_exprTpl; sym_exprSubscript; sym_exprCall];
   STATE 8019 [sym_exprBinary; sym_exprUnary]; STATE 7478 [sym_exprParens; sym_exprBrackets;
   sym__literal; sym_literalString]; STATE 6664 [sym__literalString; sym_literalChar];
   STATE 7478 [sym_literalNumber]; STATE 7742 [sym__literalInt; sym__literalFloat];
   STATE 1380 [sym__ppIf]; STATE 6327 [sym__ppStatementBlock];
   STATE 11840 [aux_sym_labeledStatement_repeat1]; STATE 863 [aux_sym__statementsTr_repeat1];
   STATE 6664 [aux_sym_literalString_repeat1]; ACTIONS 397 [anon_sym_SEMI];
   ACTIONS 1246 [anon_sym_COLON]; ACTIONS 399 [anon_sym_LBRACK]; ACTIONS 401 [anon_sym_LPAREN];
   ACTIONS 403 [aux_sym__literalString_token1]; ACTIONS 405 [anon_sym_POUND];
   ACTIONS 407 [aux_sym__literalInt_token1]; ACTIONS 409 [aux_sym__literalInt_token2;
   aux_sym__literalInt_token3]; ACTIONS 407 [aux_sym__literalFloat_token1];
   ACTIONS 411 [aux_sym_ppUsesBlock_token1]; ACTIONS 413 [sym_kAdd; sym_kSub];
   ACTIONS 415 [sym_kAt]; ACTIONS 417 [sym_kTrue; sym_kFalse]; ACTIONS 419 [sym_labelNumber];
   ACTIONS 3 [sym__space]; ACTIONS 5 [sym_ppDirective]; ACTIONS 3 [sym_comment];
   ACTIONS 417 [sym_ppFragmentExpr]; ACTIONS 397 [sym_ppFragmentStmt];
   ACTIONS 403 [sym__literalStringMultiline]; ACTIONS 421 [sym_identifier];
   ACTIONS 423 [sym_kSpecialize]; ACTIONS 427 [sym_kAsm]; ACTIONS 429 [sym_kBegin];
   ACTIONS 431 [sym_kCase]; ACTIONS 433 [sym_kConst]; ACTIONS 1248 [sym_kEnd];
   ACTIONS 437 [sym_kFor]; ACTIONS 439 [sym_kFunction]; ACTIONS 441 [sym_kGoto];
   ACTIONS 443 [sym_kIf]; ACTIONS 445 [sym_kInherited]; ACTIONS 417 [sym_kNil];
   ACTIONS 415 [sym_kNot]; ACTIONS 439 [sym_kProcedure]; ACTIONS 447 [sym_kRaise];
   ACTIONS 449 [sym_kRepeat]; ACTIONS 451 [sym_kString]; ACTIONS 453 [sym_kTry];
   ACTIONS 455 [sym_kVar]; ACTIONS 457 [sym_kWhile]; ACTIONS 459 [sym_kWith]].

(** State 199. *)
Definition ts_parse_table_199 : parse_row :=
  [STATE 6213 [sym_if]; STATE 6327 [sym_ifElse; sym_while; sym_repeat; sym_for; sym_foreach;
   sym_try; sym_case; sym_block; sym_asm; sym_with; sym_raise; sym_statement; sym_goto;
   sym__statement]; STATE 14785 [sym_ifTr; sym_ifElseTr; sym_whileTr; sym_repeatTr; sym_forTr;
   sym_foreachTr; sym_tryTr; sym_caseTr]; STATE 14251 [sym_blockTr]; STATE 14785 [sym_asmTr;
   sym_withTr; sym_raiseTr; sym_statementTr; sym_gotoTr; sym__statementTr];
   STATE 13915 [sym_assignment]; STATE 11785 [sym_varAssignDef]; STATE 13915 [sym_varDef;
   sym_constDef]; STATE 6166 [sym_label]; STATE 14785 [sym__statementsTr]; STATE 8019 [sym__expr;
   sym_exprConditional]; STATE 7478 [sym__ref; sym_lambda; sym_inherited; sym_exprDot;
   sym_exprDeref; sym_exprAs; sym_exprTpl; sym_exprSubscript; sym_exprCall];
   STATE 8019 [sym_exprBinary; sym_exprUnary]; STATE 7478 [sym_exprParens; sym_exprBrackets;
   sym__literal; sym_literalString]; STATE 6664 [sym__literalString; sym_literalChar];
   STATE 7478 [sym_literalNumber]; STATE 7742 [sym__literalInt; sym__literalFloat];
   STATE 1380 [sym__ppIf]; STATE 6327 [sym__ppStatementBlock];
   STATE 11840 [aux_sym_labeledStatement_repeat1]; STATE 863 [aux_sym__statementsTr_repeat1];
   STATE 6664 [aux_sym_literalString_repeat1]; ACTIONS 397 [anon_sym_SEMI];
   ACTIONS 1250 [anon_sym_COLON]; ACTIONS 399 [anon_sym_LBRACK]; ACTIONS 401 [anon_sym_LPAREN];
   ACTIONS 403 [aux_sym__literalString_token1]; ACTIONS 405 [anon_sym_POUND];
   ACTIONS 407 [aux_sym__literalInt_token1]; ACTIONS 409 [aux_sym__literalInt_token2;
   aux_sym__literalInt_token3]; ACTIONS 407 [aux_sym__literalFloat_token1];
   ACTIONS 411 [aux_sym_ppUsesBlock_token1]; ACTIONS 413 [sym_kAdd; sym_kSub];
   ACTIONS 415 [sym_kAt]; ACTIONS 417 [sym_kTrue; sym_kFalse]; ACTIONS 419 [sym_labelNumber];
   ACTIONS 3 [sym__space]; ACTIONS 5 [sym_ppDirective]; ACTIONS 3 [sym_comment];
   ACTIONS 417 [sym_ppFragmentExpr]; ACTIONS 397 [sym_ppFragmentStmt];
   ACTIONS 403 [sym__literalStringMultiline]; ACTIONS 421 [sym_identifier];
   ACTIONS 423 [sym_kSpecialize]; ACTIONS 427 [sym_kAsm]; ACTIONS 429 [sym_kBegin];
   ACTIONS 431 [sym_kCase]; ACTIONS 433 [sym_kConst]; ACTIONS 1252 [sym_kEnd];
   ACTIONS 437 [sym_kFor]; ACTIONS 439 [sym_kFunction]; ACTIONS 441 [sym_kGoto];
   ACTIONS 443 [sym_kIf]; ACTIONS 445 [sym_kInherited]; ACTIONS 417 [sym_kNil];
   ACTIONS 415 [sym_kNot]; ACTIONS 439 [sym_kProcedure]; ACTIONS 447 [sym_kRaise];
   ACTIONS 449 [sym_kRepeat]; ACTIONS 451 [sym_kString]; ACTIONS 453 [sym_kTry];
   ACTIONS 455 [sym_kVar]; ACTIONS 457 [sym_kWhile]; ACTIONS 459 [sym_kWith]].

(** State 200. *)
Definition ts_parse_table_200 : parse_row :=
  [STATE 6213 [sym_if]; STATE 6327 [sym_ifElse; sym_while; sym_repeat; sym_for; sym_foreach;
   sym_try; sym_case; sym_block; sym_asm; sym_with; sym_raise; sym_statement; sym_goto;
   sym__statement]; STATE 14936 [sym_ifTr; sym_ifElseTr; sym_whileTr; sym_repeatTr; sym_forTr;
   sym_foreachTr; sym_tryTr; sym_caseTr]; STATE 14251 [sym_blockTr]; STATE 14936 [sym_asmTr;
   sym_withTr; sym_raiseTr; sym_statementTr; sym_gotoTr; sym__statementTr];
   STATE 13915 [sym_assignment]; STATE 11785 [sym_varAssignDef]; STATE 13915 [sym_varDef;
   sym_constDef]; STATE 6166 [sym_label]; STATE 14936 [sym__statementsTr]; STATE 8019 [sym__expr;
   sym_exprConditional]; STATE 7478 [sym__ref; sym_lambda; sym_inherited; sym_exprDot;
   sym_exprDeref; sym_exprAs; sym_exprTpl; sym_exprSubscript; sym_exprCall];
   STATE 8019 [sym_exprBinary; sym_exprUnary]; STATE 7478 [sym_exprParens; sym_exprBrackets;
   sym__literal; sym_literalString]; STATE 6664 [sym__literalString; sym_literalChar];
   STATE 7478 [sym_literalNumber]; STATE 7742 [sym__literalInt; sym__literalFloat];
   STATE 1380 [sym__ppIf]; STATE 6327 [sym__ppStatementBlock];
   STATE 11840 [aux_sym_labeledStatement_repeat1]; STATE 863 [aux_sym__statementsTr_repeat1];
   STATE 6664 [aux_sym_literalString_repeat1]; ACTIONS 397 [anon_sym_SEMI];
   ACTIONS 1254 [anon_sym_COLON]; ACTIONS 399 [anon_sym_LBRACK]; ACTIONS 401 [anon_sym_LPAREN];
   ACTIONS 403 [aux_sym__literalString_token1]; ACTIONS 405 [anon_sym_POUND];
   ACTIONS 407 [aux_sym__literalInt_token1]; ACTIONS 409 [aux_sym__literalInt_token2;
   aux_sym__literalInt_token3]; ACTIONS 407 [aux_sym__literalFloat_token1];
   ACTIONS 411 [aux_sym_ppUsesBlock_token1]; ACTIONS 413 [sym_kAdd; sym_kSub];
   ACTIONS 415 [sym_kAt]; ACTIONS 417 [sym_kTrue; sym_kFalse]; ACTIONS 419 [sym_labelNumber];
   ACTIONS 3 [sym__space]; ACTIONS 5 [sym_ppDirective]; ACTIONS 3 [sym_comment];
   ACTIONS 417 [sym_ppFragmentExpr]; ACTIONS 397 [sym_ppFragmentStmt];
   ACTIONS 403 [sym__literalStringMultiline]; ACTIONS 421 [sym_identifier];
   ACTIONS 423 [sym_kSpecialize]; ACTIONS 427 [sym_kAsm]; ACTIONS 429 [sym_kBegin];
   ACTIONS 431 [sym_kCase]; ACTIONS 433 [sym_kConst]; ACTIONS 1256 [sym_kEnd];
   ACTIONS 437 [sym_kFor]; ACTIONS 439 [sym_kFunction]; ACTIONS 441 [sym_kGoto];
   ACTIONS 443 [sym_kIf]; ACTIONS 445 [sym_kInherited]; ACTIONS 417 [sym_kNil];
   ACTIONS 415 [sym_kNot]; ACTIONS 439 [sym_kProcedure]; ACTIONS 447 [sym_kRaise];
   ACTIONS 449 [sym_kRepeat]; ACTIONS 451 [sym_kString]; ACTIONS 453 [sym_kTry];
   ACTIONS 455 [sym_kVar]; ACTIONS 457 [sym_kWhile]; ACTIONS 459 [sym_kWith]].

(** State 201. *)
Definition ts_parse_table_201 : parse_row :=
  [STATE 6213 [sym_if]; STATE 6327 [sym_ifElse; sym_while; sym_repeat; sym_for; sym_foreach;
   sym_try; sym_case; sym_block; sym_asm; sym_with; sym_raise; sym_statement; sym_goto;
   sym__statement]; STATE 14447 [sym_ifTr; sym_ifElseTr; sym_whileTr; sym_repeatTr; sym_forTr;
   sym_foreachTr; sym_tryTr; sym_caseTr]; STATE 14251 [sym_blockTr]; STATE 14447 [sym_asmTr;
   sym_withTr; sym_raiseTr; sym_statementTr; sym_gotoTr; sym__statementTr];
   STATE 13915 [sym_assignment]; STATE 11785 [sym_varAssignDef]; STATE 13915 [sym_varDef;
   sym_constDef]; STATE 6166 [sym_label]; STATE 14447 [sym__statementsTr]; STATE 8019 [sym__expr;
   sym_exprConditional]; STATE 7478 [sym__ref; sym_lambda; sym_inherited; sym_exprDot;
   sym_exprDeref; sym_exprAs; sym_exprTpl; sym_exprSubscript; sym_exprCall];
   STATE 8019 [sym_exprBinary; sym_exprUnary]; STATE 7478 [sym_exprParens; sym_exprBrackets;
   sym__literal; sym_literalString]; STATE 6664 [sym__literalString; sym_literalChar];
   STATE 7478 [sym_literalNumber]; STATE 7742 [sym__literalInt; sym__literalFloat];
   STATE 1380 [sym__ppIf]; STATE 6327 [sym__ppStatementBlock];
   STATE 11840 [aux_sym_labeledStatement_repeat1]; STATE 863 [aux_sym__statementsTr_repeat1];
   STATE 6664 [aux_sym_literalString_repeat1]; ACTIONS 397 [anon_sym_SEMI];
   ACTIONS 1258 [anon_sym_COLON]; ACTIONS 399 [anon_sym_LBRACK]; ACTIONS 401 [anon_sym_LPAREN];
   ACTIONS 403 [aux_sym__literalString_token1]; ACTIONS 405 [anon_sym_POUND];
   ACTIONS 407 [aux_sym__literalInt_token1]; ACTIONS 409 [aux_sym__literalInt_token2;
   aux_sym__literalInt_token3]; ACTIONS 407 [aux_sym__literalFloat_token1];
   ACTIONS 411 [aux_sym_ppUsesBlock_token1]; ACTIONS 413 [sym_kAdd; sym_kSub];
   ACTIONS 415 [sym_kAt]; ACTIONS 417 [sym_kTrue; sym_kFalse]; ACTIONS 419 [sym_labelNumber];
   ACTIONS 3 [sym__space]; ACTIONS 5 [sym_ppDirective]; ACTIONS 3 [sym_comment];
   ACTIONS 417 [sym_ppFragmentExpr]; ACTIONS 397 [sym_ppFragmentStmt];
   ACTIONS 403 [sym__literalStringMultiline]; ACTIONS 421 [sym_identifier];
   ACTIONS 423 [sym_kSpecialize]; ACTIONS 427 [sym_kAsm]; ACTIONS 429 [sym_kBegin];
   ACTIONS 431 [sym_kCase]; ACTIONS 433 [sym_kConst]; ACTIONS 1260 [sym_kEnd];
   ACTIONS 437 [sym_kFor]; ACTIONS 439 [sym_kFunction]; ACTIONS 441 [sym_kGoto];
   ACTIONS 443 [sym_kIf]; ACTIONS 445 [sym_kInherited]; ACTIONS 417 [sym_kNil];
   ACTIONS 415 [sym_kNot]; ACTIONS 439 [sym_kProcedure]; ACTIONS 447 [sym_kRaise];
   ACTIONS 449 [sym_kRepeat]; ACTIONS 451 [sym_kString]; ACTIONS 453 [sym_kTry];
   ACTIONS 455 [sym_kVar]; ACTIONS 457 [sym_kWhile]; ACTIONS 459 [sym_kWith]].

(** State 202. *)
Definition ts_parse_table_202 : parse_row :=
  [STATE 6213 [sym_if]; STATE 6327 [sym_ifElse; sym_while; sym_repeat; sym_for; sym_foreach;
   sym_try; sym_case; sym_block; sym_asm; sym_with; sym_raise; sym_statement; sym_goto;
   sym__statement]; STATE 15991 [sym_ifTr; sym_ifElseTr; sym_whileTr; sym_repeatTr; sym_forTr;
   sym_foreachTr; sym_tryTr; sym_caseTr]; STATE 14251 [sym_blockTr]; STATE 15991 [sym_asmTr;
   sym_withTr; sym_raiseTr; sym_statementTr; sym_gotoTr; sym__statementTr];
   STATE 13915 [sym_assignment]; STATE 11785 [sym_varAssignDef]; STATE 13915 [sym_varDef;
   sym_constDef]; STATE 6166 [sym_label]; STATE 15991 [sym__statementsTr];
   STATE 15317 [sym_statementsTr]; STATE 8019 [sym__expr; sym_exprConditional];
   STATE 7478 [sym__ref; sym_lambda; sym_inherited; sym_exprDot; sym_exprDeref; sym_exprAs;
   sym_exprTpl; sym_exprSubscript; sym_exprCall]; STATE 8019 [sym_exprBinary; sym_exprUnary];
   STATE 7478 [sym_exprParens; sym_exprBrackets; sym__literal; sym_literalString];
   STATE 6664 [sym__literalString; sym_literalChar]; STATE 7478 [sym_literalNumber];
   STATE 7742 [sym__literalInt; sym__literalFloat]; STATE 1380 [sym__ppIf];
   STATE 6327 [sym__ppStatementBlock]; STATE 11840 [aux_sym_labeledStatement_repeat1];
   STATE 863 [aux_sym__statementsTr_repeat1]; STATE 6664 [aux_sym_literalString_repeat1];
   ACTIONS 397 [anon_sym_SEMI]; ACTIONS 399 [anon_sym_LBRACK]; ACTIONS 401 [anon_sym_LPAREN];
   ACTIONS 403 [aux_sym__literalString_token1]; ACTIONS 405 [anon_sym_POUND];
   ACTIONS 407 [aux_sym__literalInt_token1]; ACTIONS 409 [aux_sym__literalInt_token2;
   aux_sym__literalInt_token3]; ACTIONS 407 [aux_sym__literalFloat_token1];
   ACTIONS 411 [aux_sym_ppUsesBlock_token1]; ACTIONS 413 [sym_kAdd; sym_kSub];
   ACTIONS 415 [sym_kAt]; ACTIONS 417 [sym_kTrue; sym_kFalse]; ACTIONS 419 [sym_labelNumber];
   ACTIONS 3 [sym__space]; ACTIONS 5 [sym_ppDirective]; ACTIONS 3 [sym_comment];
   ACTIONS 417 [sym_ppFragmentExpr]; ACTIONS 397 [sym_ppFragmentStmt];
   ACTIONS 403 [sym__literalStringMultiline]; ACTIONS 421 [sym_identifier];
   ACTIONS 423 [sym_kSpecialize]; ACTIONS 427 [sym_kAsm]; ACTIONS 429 [sym_kBegin];
   ACTIONS 431 [sym_kCase]; ACTIONS 433 [sym_kConst]; ACTIONS 1262 [sym_kEnd];
   ACTIONS 437 [sym_kFor]; ACTIONS 439 [sym_kFunction]; ACTIONS 441 [sym_kGoto];
   ACTIONS 443 [sym_kIf]; ACTIONS 445 [sym_kInherited]; ACTIONS 417 [sym_kNil];
   ACTIONS 415 [sym_kNot]; ACTIONS 439 [sym_kProcedure]; ACTIONS 447 [sym_kRaise];
   ACTIONS 449 [sym_kRepeat]; ACTIONS 451 [sym_kString]; ACTIONS 453 [sym_kTry];
   ACTIONS 455 [sym_kVar]; ACTIONS 457 [sym_kWhile]; ACTIONS 459 [sym_kWith]].

(** State 203. *)
Definition ts_parse_table_203 : parse_row :=
  [STATE 6213 [sym_if]; STATE 6327 [sym_ifElse; sym_while; sym_repeat; sym_for; sym_foreach;
   sym_try; sym_case; sym_block; sym_asm; sym_with; sym_raise; sym_statement; sym_goto;
   sym__statement]; STATE 15384 [sym_ifTr; sym_ifElseTr; sym_whileTr; sym_repeatTr; sym_forTr;
   sym_foreachTr; sym_tryTr; sym_caseTr]; STATE 14251 [sym_blockTr]; STATE 15384 [sym_asmTr;
   sym_withTr; sym_raiseTr; sym_statementTr; sym_gotoTr; sym__statementTr];
   STATE 13915 [sym_assignment]; STATE 11785 [sym_varAssignDef]; STATE 13915 [sym_varDef;
   sym_constDef]; STATE 6166 [sym_label]; STATE 15384 [sym__statementsTr]; STATE 8019 [sym__expr;
   sym_exprConditional]; STATE 7478 [sym__ref; sym_lambda; sym_inherited; sym_exprDot;
   sym_exprDeref; sym_exprAs; sym_exprTpl; sym_exprSubscript; sym_exprCall];
   STATE 8019 [sym_exprBinary; sym_exprUnary]; STATE 7478 [sym_exprParens; sym_exprBrackets;
   sym__literal; sym_literalString]; STATE 6664 [sym__literalString; sym_literalChar];
   STATE 7478 [sym_literalNumber]; STATE 7742 [sym__literalInt; sym__literalFloat];
   STATE 1380 [sym__ppIf]; STATE 6327 [sym__ppStatementBlock];
   STATE 11840 [aux_sym_labeledStatement_repeat1]; STATE 863 [aux_sym__statementsTr_repeat1];
   STATE 6664 [aux_sym_literalString_repeat1]; ACTIONS 397 [anon_sym_SEMI];
   ACTIONS 1264 [anon_sym_COLON]; ACTIONS 399 [anon_sym_LBRACK]; ACTIONS 401 [anon_sym_LPAREN];
   ACTIONS 403 [aux_sym__literalString_token1]; ACTIONS 405 [anon_sym_POUND];
   ACTIONS 407 [aux_sym__literalInt_token1]; ACTIONS 409 [aux_sym__literalInt_token2;
   aux_sym__literalInt_token3]; ACTIONS 407 [aux_sym__literalFloat_token1];
   ACTIONS 411 [aux_sym_ppUsesBlock_token1]; ACTIONS 413 [sym_kAdd; sym_kSub];
   ACTIONS 415 [sym_kAt]; ACTIONS 417 [sym_kTrue; sym_kFalse]; ACTIONS 419 [sym_labelNumber];
   ACTIONS 3 [sym__space]; ACTIONS 5 [sym_ppDirective]; ACTIONS 3 [sym_comment];
   ACTIONS 417 [sym_ppFragmentExpr]; ACTIONS 397 [sym_ppFragmentStmt];
   ACTIONS 403 [sym__literalStringMultiline]; ACTIONS 421 [sym_identifier];
   ACTIONS 423 [sym_kSpecialize]; ACTIONS 427 [sym_kAsm]; ACTIONS 429 [sym_kBegin];
   ACTIONS 431 [sym_kCase]; ACTIONS 433 [sym_kConst]; ACTIONS 1266 [sym_kEnd];
   ACTIONS 437 [sym_kFor]; ACTIONS 439 [sym_kFunction]; ACTIONS 441 [sym_kGoto];
   ACTIONS 443 [sym_kIf]; ACTIONS 445 [sym_kInherited]; ACTIONS 417 [sym_kNil];
   ACTIONS 415 [sym_kNot]; ACTIONS 439 [sym_kProcedure]; ACTIONS 447 [sym_kRaise];
   ACTIONS 449 [sym_kRepeat]; ACTIONS 451 [sym_kString]; ACTIONS 453 [sym_kTry];
   ACTIONS 455 [sym_kVar]; ACTIONS 457 [sym_kWhile]; ACTIONS 459 [sym_kWith]].

(** State 204. *)
Definition ts_parse_table_204 : parse_row :=
  [STATE 6213 [sym_if]; STATE 6327 [sym_ifElse; sym_while; sym_repeat; sym_for; sym_foreach;
   sym_try; sym_case; sym_block; sym_asm; sym_with; sym_raise; sym_statement; sym_goto;
   sym__statement]; STATE 15991 [sym_ifTr; sym_ifElseTr; sym_whileTr; sym_repeatTr; sym_forTr;
   sym_foreachTr; sym_tryTr; sym_caseTr]; STATE 14251 [sym_blockTr]; STATE 15991 [sym_asmTr;
   sym_withTr; sym_raiseTr; sym_statementTr; sym_gotoTr; sym__statementTr];
   STATE 13915 [sym_assignment]; STATE 11785 [sym_varAssignDef]; STATE 13915 [sym_varDef;
   sym_constDef]; STATE 6166 [sym_label]; STATE 15991 [sym__statementsTr];
   STATE 15593 [sym_statementsTr]; STATE 8019 [sym__expr; sym_exprConditional];
   STATE 7478 [sym__ref; sym_lambda; sym_inherited; sym_exprDot; sym_exprDeref; sym_exprAs;
   sym_exprTpl; sym_exprSubscript; sym_exprCall]; STATE 8019 [sym_exprBinary; sym_exprUnary];
   STATE 7478 [sym_exprParens; sym_exprBrackets; sym__literal; sym_literalString];
   STATE 6664 [sym__literalString; sym_literalChar]; STATE 7478 [sym_literalNumber];
   STATE 7742 [sym__literalInt; sym__literalFloat]; STATE 1380 [sym__ppIf];
   STATE 6327 [sym__ppStatementBlock]; STATE 11840 [aux_sym_labeledStatement_repeat1];
   STATE 863 [aux_sym__statementsTr_repeat1]; STATE 6664 [aux_sym_literalString_repeat1];
   ACTIONS 397 [anon_sym_SEMI]; ACTIONS 399 [anon_sym_LBRACK]; ACTIONS 401 [anon_sym_LPAREN];
   ACTIONS 403 [aux_sym__literalString_token1]; ACTIONS 405 [anon_sym_POUND];
   ACTIONS 407 [aux_sym__literalInt_token1]; ACTIONS 409 [aux_sym__literalInt_token2;
   aux_sym__literalInt_token3]; ACTIONS 407 [aux_sym__literalFloat_token1];
   ACTIONS 411 [aux_sym_ppUsesBlock_token1]; ACTIONS 413 [sym_kAdd; sym_kSub];
   ACTIONS 415 [sym_kAt]; ACTIONS 417 [sym_kTrue; sym_kFalse]; ACTIONS 419 [sym_labelNumber];
   ACTIONS 3 [sym__space]; ACTIONS 5 [sym_ppDirective]; ACTIONS 3 [sym_comment];
   ACTIONS 417 [sym_ppFragmentExpr]; ACTIONS 397 [sym_ppFragmentStmt];
   ACTIONS 403 [sym__literalStringMultiline]; ACTIONS 421 [sym_identifier];
   ACTIONS 423 [sym_kSpecialize]; ACTIONS 427 [sym_kAsm]; ACTIONS 429 [sym_kBegin];
   ACTIONS 431 [sym_kCase]; ACTIONS 433 [sym_kConst]; ACTIONS 1268 [sym_kEnd];
   ACTIONS 437 [sym_kFor]; ACTIONS 439 [sym_kFunction]; ACTIONS 441 [sym_kGoto];
   ACTIONS 443 [sym_kIf]; ACTIONS 445 [sym_kInherited]; ACTIONS 417 [sym_kNil];
   ACTIONS 415 [sym_kNot]; ACTIONS 439 [sym_kProcedure]; ACTIONS 447 [sym_kRaise];
   ACTIONS 449 [sym_kRepeat]; ACTIONS 451 [sym_kString]; ACTIONS 453 [sym_kTry];
   ACTIONS 455 [sym_kVar]; ACTIONS 457 [sym_kWhile]; ACTIONS 459 [sym_kWith]].

(** State 205. *)
Definition ts_parse_table_205 : parse_row :=
  [STATE 6213 [sym_if]; STATE 6327 [sym_ifElse; sym_while; sym_repeat; sym_for; sym_foreach;
   sym_try; sym_case; sym_block; sym_asm; sym_with; sym_raise; sym_statement; sym_goto;
   sym__statement]; STATE 15745 [sym_ifTr; sym_ifElseTr; sym_whileTr; sym_repeatTr; sym_forTr;
   sym_foreachTr; sym_tryTr; sym_caseTr]; STATE 14251 [sym_blockTr]; STATE 15745 [sym_asmTr;
   sym_withTr; sym_raiseTr; sym_statementTr; sym_gotoTr; sym__statementTr];
   STATE 13915 [sym_assignment]; STATE 11785 [sym_varAssignDef]; STATE 13915 [sym_varDef;
   sym_constDef]; STATE 6166 [sym_label]; STATE 15745 [sym__statementsTr]; STATE 8019 [sym__expr;
   sym_exprConditional]; STATE 7478 [sym__ref; sym_lambda; sym_inherited; sym_exprDot;
   sym_exprDeref; sym_exprAs; sym_exprTpl; sym_exprSubscript; sym_exprCall];
   STATE 8019 [sym_exprBinary; sym_exprUnary]; STATE 7478 [sym_exprParens; sym_exprBrackets;
   sym__literal; sym_literalString]; STATE 6664 [sym__literalString; sym_literalChar];
   STATE 7478 [sym_literalNumber]; STATE 7742 [sym__literalInt; sym__literalFloat];
   STATE 1380 [sym__ppIf]; STATE 6327 [sym__ppStatementBlock];
   STATE 11840 [aux_sym_labeledStatement_repeat1]; STATE 863 [aux_sym__statementsTr_repeat1];
   STATE 6664 [aux_sym_literalString_repeat1]; ACTIONS 397 [anon_sym_SEMI];
   ACTIONS 1270 [anon_sym_COLON]; ACTIONS 399 [anon_sym_LBRACK]; ACTIONS 401 [anon_sym_LPAREN];
   ACTIONS 403 [aux_sym__literalString_token1]; ACTIONS 405 [anon_sym_POUND];
   ACTIONS 407 [aux_sym__literalInt_token1]; ACTIONS 409 [aux_sym__literalInt_token2;
   aux_sym__literalInt_token3]; ACTIONS 407 [aux_sym__literalFloat_token1];
   ACTIONS 411 [aux_sym_ppUsesBlock_token1]; ACTIONS 413 [sym_kAdd; sym_kSub];
   ACTIONS 415 [sym_kAt]; ACTIONS 417 [sym_kTrue; sym_kFalse]; ACTIONS 419 [sym_labelNumber];
   ACTIONS 3 [sym__space]; ACTIONS 5 [sym_ppDirective]; ACTIONS 3 [sym_comment];
   ACTIONS 417 [sym_ppFragmentExpr]; ACTIONS 397 [sym_ppFragmentStmt];
   ACTIONS 403 [sym__literalStringMultiline]; ACTIONS 421 [sym_identifier];
   ACTIONS 423 [sym_kSpecialize]; ACTIONS 427 [sym_kAsm]; ACTIONS 429 [sym_kBegin];
   ACTIONS 431 [sym_kCase]; ACTIONS 433 [sym_kConst]; ACTIONS 1272 [sym_kEnd];
   ACTIONS 437 [sym_kFor]; ACTIONS 439 [sym_kFunction]; ACTIONS 441 [sym_kGoto];
   ACTIONS 443 [sym_kIf]; ACTIONS 445 [sym_kInherited]; ACTIONS 417 [sym_kNil];
   ACTIONS 415 [sym_kNot]; ACTIONS 439 [sym_kProcedure]; ACTIONS 447 [sym_kRaise];
   ACTIONS 449 [sym_kRepeat]; ACTIONS 451 [sym_kString]; ACTIONS 453 [sym_kTry];
   ACTIONS 455 [sym_kVar]; ACTIONS 457 [sym_kWhile]; ACTIONS 459 [sym_kWith]].

(** State 206. *)
Definition ts_parse_table_206 : parse_row :=
  [STATE 6213 [sym_if]; STATE 6327 [sym_ifElse; sym_while; sym_repeat; sym_for; sym_foreach;
   sym_try; sym_case; sym_block; sym_asm; sym_with; sym_raise; sym_statement; sym_goto;
   sym__statement]; STATE 15878 [sym_ifTr; sym_ifElseTr; sym_whileTr; sym_repeatTr; sym_forTr;
   sym_foreachTr; sym_tryTr; sym_caseTr]; STATE 14251 [sym_blockTr]; STATE 15878 [sym_asmTr;
   sym_withTr; sym_raiseTr; sym_statementTr; sym_gotoTr; sym__statementTr];
   STATE 13915 [sym_assignment]; STATE 11785 [sym_varAssignDef]; STATE 13915 [sym_varDef;
   sym_constDef]; STATE 6166 [sym_label]; STATE 15878 [sym__statementsTr]; STATE 8019 [sym__expr;
   sym_exprConditional]; STATE 7478 [sym__ref; sym_lambda; sym_inherited; sym_exprDot;
   sym_exprDeref; sym_exprAs; sym_exprTpl; sym_exprSubscript; sym_exprCall];
   STATE 8019 [sym_exprBinary; sym_exprUnary]; STATE 7478 [sym_exprParens; sym_exprBrackets;
   sym__literal; sym_literalString]; STATE 6664 [sym__literalString; sym_literalChar];
   STATE 7478 [sym_literalNumber]; STATE 7742 [sym__literalInt; sym__literalFloat];
   STATE 1380 [sym__ppIf]; STATE 6327 [sym__ppStatementBlock];
   STATE 11840 [aux_sym_labeledStatement_repeat1]; STATE 863 [aux_sym__statementsTr_repeat1];
   STATE 6664 [aux_sym_literalString_repeat1]; ACTIONS 397 [anon_sym_SEMI];
   ACTIONS 1274 [anon_sym_COLON]; ACTIONS 399 [anon_sym_LBRACK]; ACTIONS 401 [anon_sym_LPAREN];
   ACTIONS 403 [aux_sym__literalString_token1]; ACTIONS 405 [anon_sym_POUND];
   ACTIONS 407 [aux_sym__literalInt_token1]; ACTIONS 409 [aux_sym__literalInt_token2;
   aux_sym__literalInt_token3]; ACTIONS 407 [aux_sym__literalFloat_token1];
   ACTIONS 411 [aux_sym_ppUsesBlock_token1]; ACTIONS 413 [sym_kAdd; sym_kSub];
   ACTIONS 415 [sym_kAt]; ACTIONS 417 [sym_kTrue; sym_kFalse]; ACTIONS 419 [sym_labelNumber];
   ACTIONS 3 [sym__space]; ACTIONS 5 [sym_ppDirective]; ACTIONS 3 [sym_comment];
   ACTIONS 417 [sym_ppFragmentExpr]; ACTIONS 397 [sym_ppFragmentStmt];
   ACTIONS 403 [sym__literalStringMultiline]; ACTIONS 421 [sym_identifier];
   ACTIONS 423 [sym_kSpecialize]; ACTIONS 427 [sym_kAsm]; ACTIONS 429 [sym_kBegin];
   ACTIONS 431 [sym_kCase]; ACTIONS 433 [sym_kConst]; ACTIONS 1276 [sym_kEnd];
   ACTIONS 437 [sym_kFor]; ACTIONS 439 [sym_kFunction]; ACTIONS 441 [sym_kGoto];
   ACTIONS 443 [sym_kIf]; ACTIONS 445 [sym_kInherited]; ACTIONS 417 [sym_kNil];
   ACTIONS 415 [sym_kNot]; ACTIONS 439 [sym_kProcedure]; ACTIONS 447 [sym_kRaise];
   ACTIONS 449 [sym_kRepeat]; ACTIONS 451 [sym_kString]; ACTIONS 453 [sym_kTry];
   ACTIONS 455 [sym_kVar]; ACTIONS 457 [sym_kWhile]; ACTIONS 459 [sym_kWith]].

(** State 207. *)
Definition ts_parse_table_207 : parse_row :=
  [STATE 6213 [sym_if]; STATE 6327 [sym_ifElse; sym_while; sym_repeat; sym_for; sym_foreach;
   sym_try; sym_case; sym_block; sym_asm; sym_with; sym_raise; sym_statement; sym_goto;
   sym__statement]; STATE 15922 [sym_ifTr; sym_ifElseTr; sym_whileTr; sym_repeatTr; sym_forTr;
   sym_foreachTr; sym_tryTr; sym_caseTr]; STATE 14251 [sym_blockTr]; STATE 15922 [sym_asmTr;
   sym_withTr; sym_raiseTr; sym_statementTr; sym_gotoTr; sym__statementTr];
   STATE 13915 [sym_assignment]; STATE 11785 [sym_varAssignDef]; STATE 13915 [sym_varDef;
   sym_constDef]; STATE 6166 [sym_label]; STATE 15922 [sym__statementsTr]; STATE 8019 [sym__expr;
   sym_exprConditional]; STATE 7478 [sym__ref; sym_lambda; sym_inherited; sym_exprDot;
   sym_exprDeref; sym_exprAs; sym_exprTpl; sym_exprSubscript; sym_exprCall];
   STATE 8019 [sym_exprBinary; sym_exprUnary]; STATE 7478 [sym_exprParens; sym_exprBrackets;
   sym__literal; sym_literalString]; STATE 6664 [sym__literalString; sym_literalChar];
   STATE 7478 [sym_literalNumber]; STATE 7742 [sym__literalInt; sym__literalFloat];
   STATE 1380 [sym__ppIf]; STATE 6327 [sym__ppStatementBlock];
   STATE 11840 [aux_sym_labeledStatement_repeat1]; STATE 863 [aux_sym__statementsTr_repeat1];
   STATE 6664 [aux_sym_literalString_repeat1]; ACTIONS 397 [anon_sym_SEMI];
   ACTIONS 1278 [anon_sym_COLON]; ACTIONS 399 [anon_sym_LBRACK]; ACTIONS 401 [anon_sym_LPAREN];
   ACTIONS 403 [aux_sym__literalString_token1]; ACTIONS 405 [anon_sym_POUND];
   ACTIONS 407 [aux_sym__literalInt_token1]; ACTIONS 409 [aux_sym__literalInt_token2;
   aux_sym__literalInt_token3]; ACTIONS 407 [aux_sym__literalFloat_token1];
   ACTIONS 411 [aux_sym_ppUsesBlock_token1]; ACTIONS 413 [sym_kAdd; sym_kSub];
   ACTIONS 415 [sym_kAt]; ACTIONS 417 [sym_kTrue; sym_kFalse]; ACTIONS 419 [sym_labelNumber];
   ACTIONS 3 [sym__space]; ACTIONS 5 [sym_ppDirective]; ACTIONS 3 [sym_comment];
   ACTIONS 417 [sym_ppFragmentExpr]; ACTIONS 397 [sym_ppFragmentStmt];
   ACTIONS 403 [sym__literalStringMultiline]; ACTIONS 421 [sym_identifier];
   ACTIONS 423 [sym_kSpecialize]; ACTIONS 427 [sym_kAsm]; ACTIONS 429 [sym_kBegin];
   ACTIONS 431 [sym_kCase]; ACTIONS 433 [sym_kConst]; ACTIONS 1280 [sym_kEnd];
   ACTIONS 437 [sym_kFor]; ACTIONS 439 [sym_kFunction]; ACTIONS 441 [sym_kGoto];
   ACTIONS 443 [sym_kIf]; ACTIONS 445 [sym_kInherited]; ACTIONS 417 [sym_kNil];
   ACTIONS 415 [sym_kNot]; ACTIONS 439 [sym_kProcedure]; ACTIONS 447 [sym_kRaise];
   ACTIONS 449 [sym_kRepeat]; ACTIONS 451 [sym_kString]; ACTIONS 453 [sym_kTry];
   ACTIONS 455 [sym_kVar]; ACTIONS 457 [sym_kWhile]; ACTIONS 459 [sym_kWith]].

(** State 208. *)
Definition ts_parse_table_208 : parse_row :=
  [STATE 6213 [sym_if]; STATE 6327 [sym_ifElse; sym_while; sym_repeat; sym_for; sym_foreach;
   sym_try; sym_case; sym_block; sym_asm; sym_with; sym_raise; sym_statement; sym_goto;
   sym__statement]; STATE 15991 [sym_ifTr; sym_ifElseTr; sym_whileTr; sym_repeatTr; sym_forTr;
   sym_foreachTr; sym_tryTr; sym_caseTr]; STATE 14251 [sym_blockTr]; STATE 15991 [sym_asmTr;
   sym_withTr; sym_raiseTr; sym_statementTr; sym_gotoTr; sym__statementTr];
   STATE 13915 [sym_assignment]; STATE 11785 [sym_varAssignDef]; STATE 13915 [sym_varDef;
   sym_constDef]; STATE 6166 [sym_label]; STATE 15991 [sym__statementsTr];
   STATE 14324 [sym_statementsTr]; STATE 8019 [sym__expr; sym_exprConditional];
   STATE 7478 [sym__ref; sym_lambda; sym_inherited; sym_exprDot; sym_exprDeref; sym_exprAs;
   sym_exprTpl; sym_exprSubscript; sym_exprCall]; STATE 8019 [sym_exprBinary; sym_exprUnary];
   STATE 7478 [sym_exprParens; sym_exprBrackets; sym__literal; sym_literalString];
   STATE 6664 [sym__literalString; sym_literalChar]; STATE 7478 [sym_literalNumber];
   STATE 7742 [sym__literalInt; sym__literalFloat]; STATE 1380 [sym__ppIf];
   STATE 6327 [sym__ppStatementBlock]; STATE 11840 [aux_sym_labeledStatement_repeat1];
   STATE 863 [aux_sym__statementsTr_repeat1]; STATE 6664 [aux_sym_literalString_repeat1];
   ACTIONS 397 [anon_sym_SEMI]; ACTIONS 399 [anon_sym_LBRACK]; ACTIONS 401 [anon_sym_LPAREN];
   ACTIONS 403 [aux_sym__literalString_token1]; ACTIONS 405 [anon_sym_POUND];
   ACTIONS 407 [aux_sym__literalInt_token1]; ACTIONS 409 [aux_sym__literalInt_token2;
   aux_sym__literalInt_token3]; ACTIONS 407 [aux_sym__literalFloat_token1];
   ACTIONS 411 [aux_sym_ppUsesBlock_token1]; ACTIONS 413 [sym_kAdd; sym_kSub];
   ACTIONS 415 [sym_kAt]; ACTIONS 417 [sym_kTrue; sym_kFalse]; ACTIONS 419 [sym_labelNumber];
   ACTIONS 3 [sym__space]; ACTIONS 5 [sym_ppDirective]; ACTIONS 3 [sym_comment];
   ACTIONS 417 [sym_ppFragmentExpr]; ACTIONS 397 [sym_ppFragmentStmt];
   ACTIONS 403 [sym__literalStringMultiline]; ACTIONS 421 [sym_identifier];
   ACTIONS 423 [sym_kSpecialize]; ACTIONS 427 [sym_kAsm]; ACTIONS 429 [sym_kBegin];
   ACTIONS 431 [sym_kCase]; ACTIONS 433 [sym_kConst]; ACTIONS 1282 [sym_kEnd];
   ACTIONS 437 [sym_kFor]; ACTIONS 439 [sym_kFunction]; ACTIONS 441 [sym_kGoto];
   ACTIONS 443 [sym_kIf]; ACTIONS 445 [sym_kInherited]; ACTIONS 417 [sym_kNil];
   ACTIONS 415 [sym_kNot]; ACTIONS 439 [sym_kProcedure]; ACTIONS 447 [sym_kRaise];
   ACTIONS 449 [sym_kRepeat]; ACTIONS 451 [sym_kString]; ACTIONS 453 [sym_kTry];
   ACTIONS 455 [sym_kVar]; ACTIONS 457 [sym_kWhile]; ACTIONS 459 [sym_kWith]].

(** State 209. *)
Definition ts_parse_table_209 : parse_row :=
  [STATE 6213 [sym_if]; STATE 6327 [sym_ifElse; sym_while; sym_repeat; sym_for; sym_foreach;
   sym_try; sym_case; sym_block; sym_asm; sym_with; sym_raise; sym_statement; sym_goto;
   sym__statement]; STATE 15991 [sym_ifTr; sym_ifElseTr; sym_whileTr; sym_repeatTr; sym_forTr;
   sym_foreachTr; sym_tryTr; sym_caseTr]; STATE 14251 [sym_blockTr]; STATE 15991 [sym_asmTr;
   sym_withTr; sym_raiseTr; sym_statementTr; sym_gotoTr; sym__statementTr];
   STATE 13915 [sym_assignment]; STATE 11785 [sym_varAssignDef]; STATE 13915 [sym_varDef;
   sym_constDef]; STATE 6166 [sym_label]; STATE 15991 [sym__statementsTr];
   STATE 14326 [sym_statementsTr]; STATE 8019 [sym__expr; sym_exprConditional];
   STATE 7478 [sym__ref; sym_lambda; sym_inherited; sym_exprDot; sym_exprDeref; sym_exprAs;
   sym_exprTpl; sym_exprSubscript; sym_exprCall]; STATE 8019 [sym_exprBinary; sym_exprUnary];
   STATE 7478 [sym_exprParens; sym_exprBrackets; sym__literal; sym_literalString];
   STATE 6664 [sym__literalString; sym_literalChar]; STATE 7478 [sym_literalNumber];
   STATE 7742 [sym__literalInt; sym__literalFloat]; STATE 1380 [sym__ppIf];
   STATE 6327 [sym__ppStatementBlock]; STATE 11840 [aux_sym_labeledStatement_repeat1];
   STATE 863 [aux_sym__statementsTr_repeat1]; STATE 6664 [aux_sym_literalString_repeat1];
   ACTIONS 397 [anon_sym_SEMI]; ACTIONS 399 [anon_sym_LBRACK]; ACTIONS 401 [anon_sym_LPAREN];
   ACTIONS 403 [aux_sym__literalString_token1]; ACTIONS 405 [anon_sym_POUND];
   ACTIONS 407 [aux_sym__literalInt_token1]; ACTIONS 409 [aux_sym__literalInt_token2;
   aux_sym__literalInt_token3]; ACTIONS 407 [aux_sym__literalFloat_token1];
   ACTIONS 411 [aux_sym_ppUsesBlock_token1]; ACTIONS 413 [sym_kAdd; sym_kSub];
   ACTIONS 415 [sym_kAt]; ACTIONS 417 [sym_kTrue; sym_kFalse]; ACTIONS 419 [sym_labelNumber];
   ACTIONS 3 [sym__space]; ACTIONS 5 [sym_ppDirective]; ACTIONS 3 [sym_comment];
   ACTIONS 417 [sym_ppFragmentExpr]; ACTIONS 397 [sym_ppFragmentStmt];
   ACTIONS 403 [sym__literalStringMultiline]; ACTIONS 421 [sym_identifier];
   ACTIONS 423 [sym_kSpecialize]; ACTIONS 427 [sym_kAsm]; ACTIONS 429 [sym_kBegin];
   ACTIONS 431 [sym_kCase]; ACTIONS 433 [sym_kConst]; ACTIONS 1284 [sym_kEnd];
   ACTIONS 437 [sym_kFor]; ACTIONS 439 [sym_kFunction]; ACTIONS 441 [sym_kGoto];
   ACTIONS 443 [sym_kIf]; ACTIONS 445 [sym_kInherited]; ACTIONS 417 [sym_kNil];
   ACTIONS 415 [sym_kNot]; ACTIONS 439 [sym_kProcedure]; ACTIONS 447 [sym_kRaise];
   ACTIONS 449 [sym_kRepeat]; ACTIONS 451 [sym_kString]; ACTIONS 453 [sym_kTry];
   ACTIONS 455 [sym_kVar]; ACTIONS 457 [sym_kWhile]; ACTIONS 459 [sym_kWith]].

(** State 210. *)
Definition ts_parse_table_210 : parse_row :=
  [STATE 6213 [sym_if]; STATE 6327 [sym_ifElse; sym_while; sym_repeat; sym_for; sym_foreach;
   sym_try; sym_case; sym_block; sym_asm; sym_with; sym_raise; sym_statement; sym_goto;
   sym__statement]; STATE 15991 [sym_ifTr; sym_ifElseTr; sym_whileTr; sym_repeatTr; sym_forTr;
   sym_foreachTr; sym_tryTr; sym_caseTr]; STATE 14251 [sym_blockTr]; STATE 15991 [sym_asmTr;
   sym_withTr; sym_raiseTr; sym_statementTr; sym_gotoTr; sym__statementTr];
   STATE 13915 [sym_assignment]; STATE 11785 [sym_varAssignDef]; STATE 13915 [sym_varDef;
   sym_constDef]; STATE 6166 [sym_label]; STATE 15991 [sym__statementsTr];
   STATE 14461 [sym_statementsTr]; STATE 8019 [sym__expr; sym_exprConditional];
   STATE 7478 [sym__ref; sym_lambda; sym_inherited; sym_exprDot; sym_exprDeref; sym_exprAs;
   sym_exprTpl; sym_exprSubscript; sym_exprCall]; STATE 8019 [sym_exprBinary; sym_exprUnary];
   STATE 7478 [sym_exprParens; sym_exprBrackets; sym__literal; sym_literalString];
   STATE 6664 [sym__literalString; sym_literalChar]; STATE 7478 [sym_literalNumber];
   STATE 7742 [sym__literalInt; sym__literalFloat]; STATE 1380 [sym__ppIf];
   STATE 6327 [sym__ppStatementBlock]; STATE 11840 [aux_sym_labeledStatement_repeat1];
   STATE 863 [aux_sym__statementsTr_repeat1]; STATE 6664 [aux_sym_literalString_repeat1];
   ACTIONS 397 [anon_sym_SEMI]; ACTIONS 399 [anon_sym_LBRACK]; ACTIONS 401 [anon_sym_LPAREN];
   ACTIONS 403 [aux_sym__literalString_token1]; ACTIONS 405 [anon_sym_POUND];
   ACTIONS 407 [aux_sym__literalInt_token1]; ACTIONS 409 [aux_sym__literalInt_token2;
   aux_sym__literalInt_token3]; ACTIONS 407 [aux_sym__literalFloat_token1];
   ACTIONS 411 [aux_sym_ppUsesBlock_token1]; ACTIONS 413 [sym_kAdd; sym_kSub];
   ACTIONS 415 [sym_kAt]; ACTIONS 417 [sym_kTrue; sym_kFalse]; ACTIONS 419 [sym_labelNumber];
   ACTIONS 3 [sym__space]; ACTIONS 5 [sym_ppDirective]; ACTIONS 3 [sym_comment];
   ACTIONS 417 [sym_ppFragmentExpr]; ACTIONS 397 [sym_ppFragmentStmt];
   ACTIONS 403 [sym__literalStringMultiline]; ACTIONS 421 [sym_identifier];
   ACTIONS 423 [sym_kSpecialize]; ACTIONS 427 [sym_kAsm]; ACTIONS 429 [sym_kBegin];
   ACTIONS 431 [sym_kCase]; ACTIONS 433 [sym_kConst]; ACTIONS 1286 [sym_kEnd];
   ACTIONS 437 [sym_kFor]; ACTIONS 439 [sym_kFunction]; ACTIONS 441 [sym_kGoto];
   ACTIONS 443 [sym_kIf]; ACTIONS 445 [sym_kInherited]; ACTIONS 417 [sym_kNil];
   ACTIONS 415 [sym_kNot]; ACTIONS 439 [sym_kProcedure]; ACTIONS 447 [sym_kRaise];
   ACTIONS 449 [sym_kRepeat]; ACTIONS 451 [sym_kString]; ACTIONS 453 [sym_kTry];
   ACTIONS 455 [sym_kVar]; ACTIONS 457 [sym_kWhile]; ACTIONS 459 [sym_kWith]].

(** State 211. *)
Definition ts_parse_table_211 : parse_row :=
  [STATE 6213 [sym_if]; STATE 6327 [sym_ifElse; sym_while; sym_repeat; sym_for; sym_foreach;
   sym_try; sym_case; sym_block; sym_asm; sym_with; sym_raise; sym_statement; sym_goto;
   sym__statement]; STATE 14567 [sym_ifTr; sym_ifElseTr; sym_whileTr; sym_repeatTr; sym_forTr;
   sym_foreachTr; sym_tryTr; sym_caseTr]; STATE 14251 [sym_blockTr]; STATE 14567 [sym_asmTr;
   sym_withTr; sym_raiseTr; sym_statementTr; sym_gotoTr; sym__statementTr];
   STATE 13915 [sym_assignment]; STATE 11785 [sym_varAssignDef]; STATE 13915 [sym_varDef;
   sym_constDef]; STATE 6166 [sym_label]; STATE 14567 [sym__statementsTr]; STATE 8019 [sym__expr;
   sym_exprConditional]; STATE 7478 [sym__ref; sym_lambda; sym_inherited; sym_exprDot;
   sym_exprDeref; sym_exprAs; sym_exprTpl; sym_exprSubscript; sym_exprCall];
   STATE 8019 [sym_exprBinary; sym_exprUnary]; STATE 7478 [sym_exprParens; sym_exprBrackets;
   sym__literal; sym_literalString]; STATE 6664 [sym__literalString; sym_literalChar];
   STATE 7478 [sym_literalNumber]; STATE 7742 [sym__literalInt; sym__literalFloat];
   STATE 1380 [sym__ppIf]; STATE 6327 [sym__ppStatementBlock];
   STATE 11840 [aux_sym_labeledStatement_repeat1]; STATE 863 [aux_sym__statementsTr_repeat1];
   STATE 6664 [aux_sym_literalString_repeat1]; ACTIONS 397 [anon_sym_SEMI];
   ACTIONS 1288 [anon_sym_COLON]; ACTIONS 399 [anon_sym_LBRACK]; ACTIONS 401 [anon_sym_LPAREN];
   ACTIONS 403 [aux_sym__literalString_token1]; ACTIONS 405 [anon_sym_POUND];
   ACTIONS 407 [aux_sym__literalInt_token1]; ACTIONS 409 [aux_sym__literalInt_token2;
   aux_sym__literalInt_token3]; ACTIONS 407 [aux_sym__literalFloat_token1];
   ACTIONS 411 [aux_sym_ppUsesBlock_token1]; ACTIONS 413 [sym_kAdd; sym_kSub];
   ACTIONS 415 [sym_kAt]; ACTIONS 417 [sym_kTrue; sym_kFalse]; ACTIONS 419 [sym_labelNumber];
   ACTIONS 3 [sym__space]; ACTIONS 5 [sym_ppDirective]; ACTIONS 3 [sym_comment];
   ACTIONS 417 [sym_ppFragmentExpr]; ACTIONS 397 [sym_ppFragmentStmt];
   ACTIONS 403 [sym__literalStringMultiline]; ACTIONS 421 [sym_identifier];
   ACTIONS 423 [sym_kSpecialize]; ACTIONS 427 [sym_kAsm]; ACTIONS 429 [sym_kBegin];
   ACTIONS 431 [sym_kCase]; ACTIONS 433 [sym_kConst]; ACTIONS 1290 [sym_kEnd];
   ACTIONS 437 [sym_kFor]; ACTIONS 439 [sym_kFunction]; ACTIONS 441 [sym_kGoto];
   ACTIONS 443 [sym_kIf]; ACTIONS 445 [sym_kInherited]; ACTIONS 417 [sym_kNil];
   ACTIONS 415 [sym_kNot]; ACTIONS 439 [sym_kProcedure]; ACTIONS 447 [sym_kRaise];
   ACTIONS 449 [sym_kRepeat]; ACTIONS 451 [sym_kString]; ACTIONS 453 [sym_kTry];
   ACTIONS 455 [sym_kVar]; ACTIONS 457 [sym_kWhile]; ACTIONS 459 [sym_kWith]].

(** State 212. *)
Definition ts_parse_table_212 : parse_row :=
  [STATE 6213 [sym_if]; STATE 6327 [sym_ifElse; sym_while; sym_repeat; sym_for; sym_foreach;
   sym_try; sym_case; sym_block; sym_asm; sym_with; sym_raise; sym_statement; sym_goto;
   sym__statement]; STATE 14653 [sym_ifTr; sym_ifElseTr; sym_whileTr; sym_repeatTr; sym_forTr;
   sym_foreachTr; sym_tryTr; sym_caseTr]; STATE 14251 [sym_blockTr]; STATE 14653 [sym_asmTr;
   sym_withTr; sym_raiseTr; sym_statementTr; sym_gotoTr; sym__statementTr];
   STATE 13915 [sym_assignment]; STATE 11785 [sym_varAssignDef]; STATE 13915 [sym_varDef;
   sym_constDef]; STATE 6166 [sym_label]; STATE 14653 [sym__statementsTr]; STATE 8019 [sym__expr;
   sym_exprConditional]; STATE 7478 [sym__ref; sym_lambda; sym_inherited; sym_exprDot;
   sym_exprDeref; sym_exprAs; sym_exprTpl; sym_exprSubscript; sym_exprCall];
   STATE 8019 [sym_exprBinary; sym_exprUnary]; STATE 7478 [sym_exprParens; sym_exprBrackets;
   sym__literal; sym_literalString]; STATE 6664 [sym__literalString; sym_literalChar];
   STATE 7478 [sym_literalNumber]; STATE 7742 [sym__literalInt; sym__literalFloat];
   STATE 1380 [sym__ppIf]; STATE 6327 [sym__ppStatementBlock];
   STATE 11840 [aux_sym_labeledStatement_repeat1]; STATE 863 [aux_sym__statementsTr_repeat1];
   STATE 6664 [aux_sym_literalString_repeat1]; ACTIONS 397 [anon_sym_SEMI];
   ACTIONS 1292 [anon_sym_COLON]; ACTIONS 399 [anon_sym_LBRACK]; ACTIONS 401 [anon_sym_LPAREN];
   ACTIONS 403 [aux_sym__literalString_token1]; ACTIONS 405 [anon_sym_POUND];
   ACTIONS 407 [aux_sym__literalInt_token1]; ACTIONS 409 [aux_sym__literalInt_token2;
   aux_sym__literalInt_token3]; ACTIONS 407 [aux_sym__literalFloat_token1];
   ACTIONS 411 [aux_sym_ppUsesBlock_token1]; ACTIONS 413 [sym_kAdd; sym_kSub];
   ACTIONS 415 [sym_kAt]; ACTIONS 417 [sym_kTrue; sym_kFalse]; ACTIONS 419 [sym_labelNumber];
   ACTIONS 3 [sym__space]; ACTIONS 5 [sym_ppDirective]; ACTIONS 3 [sym_comment];
   ACTIONS 417 [sym_ppFragmentExpr]; ACTIONS 397 [sym_ppFragmentStmt];
   ACTIONS 403 [sym__literalStringMultiline]; ACTIONS 421 [sym_identifier];
   ACTIONS 423 [sym_kSpecialize]; ACTIONS 427 [sym_kAsm]; ACTIONS 429 [sym_kBegin];
   ACTIONS 431 [sym_kCase]; ACTIONS 433 [sym_kConst]; ACTIONS 1294 [sym_kEnd];
   ACTIONS 437 [sym_kFor]; ACTIONS 439 [sym_kFunction]; ACTIONS 441 [sym_kGoto];
   ACTIONS 443 [sym_kIf]; ACTIONS 445 [sym_kInherited]; ACTIONS 417 [sym_kNil];
   ACTIONS 415 [sym_kNot]; ACTIONS 439 [sym_kProcedure]; ACTIONS 447 [sym_kRaise];
   ACTIONS 449 [sym_kRepeat]; ACTIONS 451 [sym_kString]; ACTIONS 453 [sym_kTry];
   ACTIONS 455 [sym_kVar]; ACTIONS 457 [sym_kWhile]; ACTIONS 459 [sym_kWith]].

(** State 213. *)
Definition ts_parse_table_213 : parse_row :=
  [STATE 6213 [sym_if]; STATE 6327 [sym_ifElse; sym_while; sym_repeat; sym_for; sym_foreach;
   sym_try; sym_case; sym_block; sym_asm; sym_with; sym_raise; sym_statement; sym_goto;
   sym__statement]; STATE 14673 [sym_ifTr; sym_ifElseTr; sym_whileTr; sym_repeatTr; sym_forTr;
   sym_foreachTr; sym_tryTr; sym_caseTr]; STATE 14251 [sym_blockTr]; STATE 14673 [sym_asmTr;
   sym_withTr; sym_raiseTr; sym_statementTr; sym_gotoTr; sym__statementTr];
   STATE 13915 [sym_assignment]; STATE 11785 [sym_varAssignDef]; STATE 13915 [sym_varDef;
   sym_constDef]; STATE 6166 [sym_label]; STATE 14673 [sym__statementsTr]; STATE 8019 [sym__expr;
   sym_exprConditional]; STATE 7478 [sym__ref; sym_lambda; sym_inherited; sym_exprDot;
   sym_exprDeref; sym_exprAs; sym_exprTpl; sym_exprSubscript; sym_exprCall];
   STATE 8019 [sym_exprBinary; sym_exprUnary]; STATE 7478 [sym_exprParens; sym_exprBrackets;
   sym__literal; sym_literalString]; STATE 6664 [sym__literalString; sym_literalChar];
   STATE 7478 [sym_literalNumber]; STATE 7742 [sym__literalInt; sym__literalFloat];
   STATE 1380 [sym__ppIf]; STATE 6327 [sym__ppStatementBlock];
   STATE 11840 [aux_sym_labeledStatement_repeat1]; STATE 863 [aux_sym__statementsTr_repeat1];
   STATE 6664 [aux_sym_literalString_repeat1]; ACTIONS 397 [anon_sym_SEMI];
   ACTIONS 1296 [anon_sym_COLON]; ACTIONS 399 [anon_sym_LBRACK]; ACTIONS 401 [anon_sym_LPAREN];
   ACTIONS 403 [aux_sym__literalString_token1]; ACTIONS 405 [anon_sym_POUND];
   ACTIONS 407 [aux_sym__literalInt_token1]; ACTIONS 409 [aux_sym__literalInt_token2;
   aux_sym__literalInt_token3]; ACTIONS 407 [aux_sym__literalFloat_token1];
   ACTIONS 411 [aux_sym_ppUsesBlock_token1]; ACTIONS 413 [sym_kAdd; sym_kSub];
   ACTIONS 415 [sym_kAt]; ACTIONS 417 [sym_kTrue; sym_kFalse]; ACTIONS 419 [sym_labelNumber];
   ACTIONS 3 [sym__space]; ACTIONS 5 [sym_ppDirective]; ACTIONS 3 [sym_comment];
   ACTIONS 417 [sym_ppFragmentExpr]; ACTIONS 397 [sym_ppFragmentStmt];
   ACTIONS 403 [sym__literalStringMultiline]; ACTIONS 421 [sym_identifier];
   ACTIONS 423 [sym_kSpecialize]; ACTIONS 427 [sym_kAsm]; ACTIONS 429 [sym_kBegin];
   ACTIONS 431 [sym_kCase]; ACTIONS 433 [sym_kConst]; ACTIONS 1298 [sym_kEnd];
   ACTIONS 437 [sym_kFor]; ACTIONS 439 [sym_kFunction]; ACTIONS 441 [sym_kGoto];
   ACTIONS 443 [sym_kIf]; ACTIONS 445 [sym_kInherited]; ACTIONS 417 [sym_kNil];
   ACTIONS 415 [sym_kNot]; ACTIONS 439 [sym_kProcedure]; ACTIONS 447 [sym_kRaise];
   ACTIONS 449 [sym_kRepeat]; ACTIONS 451 [sym_kString]; ACTIONS 453 [sym_kTry];
   ACTIONS 455 [sym_kVar]; ACTIONS 457 [sym_kWhile]; ACTIONS 459 [sym_kWith]].

(** State 214. *)
Definition ts_parse_table_214 : parse_row :=
  [STATE 6213 [sym_if]; STATE 6327 [sym_ifElse; sym_while; sym_repeat; sym_for; sym_foreach;
   sym_try; sym_case; sym_block; sym_asm; sym_with; sym_raise; sym_statement; sym_goto;
   sym__statement]; STATE 15991 [sym_ifTr; sym_ifElseTr; sym_whileTr; sym_repeatTr; sym_forTr;
   sym_foreachTr; sym_tryTr; sym_caseTr]; STATE 14251 [sym_blockTr]; STATE 15991 [sym_asmTr;
   sym_withTr; sym_raiseTr; sym_statementTr; sym_gotoTr; sym__statementTr];
   STATE 13915 [sym_assignment]; STATE 11785 [sym_varAssignDef]; STATE 13915 [sym_varDef;
   sym_constDef]; STATE 6166 [sym_label]; STATE 15991 [sym__statementsTr];
   STATE 14917 [sym_statementsTr]; STATE 8019 [sym__expr; sym_exprConditional];
   STATE 7478 [sym__ref; sym_lambda; sym_inherited; sym_exprDot; sym_exprDeref; sym_exprAs;
   sym_exprTpl; sym_exprSubscript; sym_exprCall]; STATE 8019 [sym_exprBinary; sym_exprUnary];
   STATE 7478 [sym_exprParens; sym_exprBrackets; sym__literal; sym_literalString];
   STATE 6664 [sym__literalString; sym_literalChar]; STATE 7478 [sym_literalNumber];
   STATE 7742 [sym__literalInt; sym__literalFloat]; STATE 1380 [sym__ppIf];
   STATE 6327 [sym__ppStatementBlock]; STATE 11840 [aux_sym_labeledStatement_repeat1];
   STATE 863 [aux_sym__statementsTr_repeat1]; STATE 6664 [aux_sym_literalString_repeat1];
   ACTIONS 397 [anon_sym_SEMI]; ACTIONS 399 [anon_sym_LBRACK]; ACTIONS 401 [anon_sym_LPAREN];
   ACTIONS 403 [aux_sym__literalString_token1]; ACTIONS 405 [anon_sym_POUND];
   ACTIONS 407 [aux_sym__literalInt_token1]; ACTIONS 409 [aux_sym__literalInt_token2;
   aux_sym__literalInt_token3]; ACTIONS 407 [aux_sym__literalFloat_token1];
   ACTIONS 411 [aux_sym_ppUsesBlock_token1]; ACTIONS 413 [sym_kAdd; sym_kSub];
   ACTIONS 415 [sym_kAt]; ACTIONS 417 [sym_kTrue; sym_kFalse]; ACTIONS 419 [sym_labelNumber];
   ACTIONS 3 [sym__space]; ACTIONS 5 [sym_ppDirective]; ACTIONS 3 [sym_comment];
   ACTIONS 417 [sym_ppFragmentExpr]; ACTIONS 397 [sym_ppFragmentStmt];
   ACTIONS 403 [sym__literalStringMultiline]; ACTIONS 421 [sym_identifier];
   ACTIONS 423 [sym_kSpecialize]; ACTIONS 427 [sym_kAsm]; ACTIONS 429 [sym_kBegin];
   ACTIONS 431 [sym_kCase]; ACTIONS 433 [sym_kConst]; ACTIONS 1300 [sym_kEnd];
   ACTIONS 437 [sym_kFor]; ACTIONS 439 [sym_kFunction]; ACTIONS 441 [sym_kGoto];
   ACTIONS 443 [sym_kIf]; ACTIONS 445 [sym_kInherited]; ACTIONS 417 [sym_kNil];
   ACTIONS 415 [sym_kNot]; ACTIONS 439 [sym_kProcedure]; ACTIONS 447 [sym_kRaise];
   ACTIONS 449 [sym_kRepeat]; ACTIONS 451 [sym_kString]; ACTIONS 453 [sym_kTry];
   ACTIONS 455 [sym_kVar]; ACTIONS 457 [sym_kWhile]; ACTIONS 459 [sym_kWith]].

(** State 215. *)
Definition ts_parse_table_215 : parse_row :=
  [STATE 6213 [sym_if]; STATE 6327 [sym_ifElse; sym_while; sym_repeat; sym_for; sym_foreach;
   sym_try; sym_case; sym_block; sym_asm; sym_with; sym_raise; sym_statement; sym_goto;
   sym__statement]; STATE 15991 [sym_ifTr; sym_ifElseTr; sym_whileTr; sym_repeatTr; sym_forTr;
   sym_foreachTr; sym_tryTr; sym_caseTr]; STATE 14251 [sym_blockTr]; STATE 15991 [sym_asmTr;
   sym_withTr; sym_raiseTr; sym_statementTr; sym_gotoTr; sym__statementTr];
   STATE 13915 [sym_assignment]; STATE 11785 [sym_varAssignDef]; STATE 13915 [sym_varDef;
   sym_constDef]; STATE 6166 [sym_label]; STATE 15991 [sym__statementsTr];
   STATE 15006 [sym_statementsTr]; STATE 8019 [sym__expr; sym_exprConditional];
   STATE 7478 [sym__ref; sym_lambda; sym_inherited; sym_exprDot; sym_exprDeref; sym_exprAs;
   sym_exprTpl; sym_exprSubscript; sym_exprCall]; STATE 8019 [sym_exprBinary; sym_exprUnary];
   STATE 7478 [sym_exprParens; sym_exprBrackets; sym__literal; sym_literalString];
   STATE 6664 [sym__literalString; sym_literalChar]; STATE 7478 [sym_literalNumber];
   STATE 7742 [sym__literalInt; sym__literalFloat]; STATE 1380 [sym__ppIf];
   STATE 6327 [sym__ppStatementBlock]; STATE 11840 [aux_sym_labeledStatement_repeat1];
   STATE 863 [aux_sym__statementsTr_repeat1]; STATE 6664 [aux_sym_literalString_repeat1];
   ACTIONS 397 [anon_sym_SEMI]; ACTIONS 399 [anon_sym_LBRACK]; ACTIONS 401 [anon_sym_LPAREN];
   ACTIONS 403 [aux_sym__literalString_token1]; ACTIONS 405 [anon_sym_POUND];
   ACTIONS 407 [aux_sym__literalInt_token1]; ACTIONS 409 [aux_sym__literalInt_token2;
   aux_sym__literalInt_token3]; ACTIONS 407 [aux_sym__literalFloat_token1];
   ACTIONS 411 [aux_sym_ppUsesBlock_token1]; ACTIONS 413 [sym_kAdd; sym_kSub];
   ACTIONS 415 [sym_kAt]; ACTIONS 417 [sym_kTrue; sym_kFalse]; ACTIONS 419 [sym_labelNumber];
   ACTIONS 3 [sym__space]; ACTIONS 5 [sym_ppDirective]; ACTIONS 3 [sym_comment];
   ACTIONS 417 [sym_ppFragmentExpr]; ACTIONS 397 [sym_ppFragmentStmt];
   ACTIONS 403 [sym__literalStringMultiline]; ACTIONS 421 [sym_identifier];
   ACTIONS 423 [sym_kSpecialize]; ACTIONS 427 [sym_kAsm]; ACTIONS 429 [sym_kBegin];
   ACTIONS 431 [sym_kCase]; ACTIONS 433 [sym_kConst]; ACTIONS 1302 [sym_kEnd];
   ACTIONS 437 [sym_kFor]; ACTIONS 439 [sym_kFunction]; ACTIONS 441 [sym_kGoto];
   ACTIONS 443 [sym_kIf]; ACTIONS 445 [sym_kInherited]; ACTIONS 417 [sym_kNil];
   ACTIONS 415 [sym_kNot]; ACTIONS 439 [sym_kProcedure]; ACTIONS 447 [sym_kRaise];
   ACTIONS 449 [sym_kRepeat]; ACTIONS 451 [sym_kString]; ACTIONS 453 [sym_kTry];
   ACTIONS 455 [sym_kVar]; ACTIONS 457 [sym_kWhile]; ACTIONS 459 [sym_kWith]].

(** State 216. *)
Definition ts_parse_table_216 : parse_row :=
  [STATE 6213 [sym_if]; STATE 6327 [sym_ifElse; sym_while; sym_repeat; sym_for; sym_foreach;
   sym_try; sym_case; sym_block; sym_asm; sym_with; sym_raise; sym_statement; sym_goto;
   sym__statement]; STATE 15075 [sym_ifTr; sym_ifElseTr; sym_whileTr; sym_repeatTr; sym_forTr;
   sym_foreachTr; sym_tryTr; sym_caseTr]; STATE 14251 [sym_blockTr]; STATE 15075 [sym_asmTr;
   sym_withTr; sym_raiseTr; sym_statementTr; sym_gotoTr; sym__statementTr];
   STATE 13915 [sym_assignment]; STATE 11785 [sym_varAssignDef]; STATE 13915 [sym_varDef;
   sym_constDef]; STATE 6166 [sym_label]; STATE 15075 [sym__statementsTr]; STATE 8019 [sym__expr;
   sym_exprConditional]; STATE 7478 [sym__ref; sym_lambda; sym_inherited; sym_exprDot;
   sym_exprDeref; sym_exprAs; sym_exprTpl; sym_exprSubscript; sym_exprCall];
   STATE 8019 [sym_exprBinary; sym_exprUnary]; STATE 7478 [sym_exprParens; sym_exprBrackets;
   sym__literal; sym_literalString]; STATE 6664 [sym__literalString; sym_literalChar];
   STATE 7478 [sym_literalNumber]; STATE 7742 [sym__literalInt; sym__literalFloat];
   STATE 1380 [sym__ppIf]; STATE 6327 [sym__ppStatementBlock];
   STATE 11840 [aux_sym_labeledStatement_repeat1]; STATE 863 [aux_sym__statementsTr_repeat1];
   STATE 6664 [aux_sym_literalString_repeat1]; ACTIONS 397 [anon_sym_SEMI];
   ACTIONS 1304 [anon_sym_COLON]; ACTIONS 399 [anon_sym_LBRACK]; ACTIONS 401 [anon_sym_LPAREN];
   ACTIONS 403 [aux_sym__literalString_token1]; ACTIONS 405 [anon_sym_POUND];
   ACTIONS 407 [aux_sym__literalInt_token1]; ACTIONS 409 [aux_sym__literalInt_token2;
   aux_sym__literalInt_token3]; ACTIONS 407 [aux_sym__literalFloat_token1];
   ACTIONS 411 [aux_sym_ppUsesBlock_token1]; ACTIONS 413 [sym_kAdd; sym_kSub];
   ACTIONS 415 [sym_kAt]; ACTIONS 417 [sym_kTrue; sym_kFalse]; ACTIONS 419 [sym_labelNumber];
   ACTIONS 3 [sym__space]; ACTIONS 5 [sym_ppDirective]; ACTIONS 3 [sym_comment];
   ACTIONS 417 [sym_ppFragmentExpr]; ACTIONS 397 [sym_ppFragmentStmt];
   ACTIONS 403 [sym__literalStringMultiline]; ACTIONS 421 [sym_identifier];
   ACTIONS 423 [sym_kSpecialize]; ACTIONS 427 [sym_kAsm]; ACTIONS 429 [sym_kBegin];
   ACTIONS 431 [sym_kCase]; ACTIONS 433 [sym_kConst]; ACTIONS 1306 [sym_kEnd];
   ACTIONS 437 [sym_kFor]; ACTIONS 439 [sym_kFunction]; ACTIONS 441 [sym_kGoto];
   ACTIONS 443 [sym_kIf]; ACTIONS 445 [sym_kInherited]; ACTIONS 417 [sym_kNil];
   ACTIONS 415 [sym_kNot]; ACTIONS 439 [sym_kProcedure]; ACTIONS 447 [sym_kRaise];
   ACTIONS 449 [sym_kRepeat]; ACTIONS 451 [sym_kString]; ACTIONS 453 [sym_kTry];
   ACTIONS 455 [sym_kVar]; ACTIONS 457 [sym_kWhile]; ACTIONS 459 [sym_kWith]].

(** State 217. *)
Definition ts_parse_table_217 : parse_row :=
  [STATE 6213 [sym_if]; STATE 6327 [sym_ifElse; sym_while; sym_repeat; sym_for; sym_foreach;
   sym_try; sym_case; sym_block; sym_asm; sym_with; sym_raise; sym_statement; sym_goto;
   sym__statement]; STATE 15121 [sym_ifTr; sym_ifElseTr; sym_whileTr; sym_repeatTr; sym_forTr;
   sym_foreachTr; sym_tryTr; sym_caseTr]; STATE 14251 [sym_blockTr]; STATE 15121 [sym_asmTr;
   sym_withTr; sym_raiseTr; sym_statementTr; sym_gotoTr; sym__statementTr];
   STATE 13915 [sym_assignment]; STATE 11785 [sym_varAssignDef]; STATE 13915 [sym_varDef;
   sym_constDef]; STATE 6166 [sym_label]; STATE 15121 [sym__statementsTr]; STATE 8019 [sym__expr;
   sym_exprConditional]; STATE 7478 [sym__ref; sym_lambda; sym_inherited; sym_exprDot;
   sym_exprDeref; sym_exprAs; sym_exprTpl; sym_exprSubscript; sym_exprCall];
   STATE 8019 [sym_exprBinary; sym_exprUnary]; STATE 7478 [sym_exprParens; sym_exprBrackets;
   sym__literal; sym_literalString]; STATE 6664 [sym__literalString; sym_literalChar];
   STATE 7478 [sym_literalNumber]; STATE 7742 [sym__literalInt; sym__literalFloat];
   STATE 1380 [sym__ppIf]; STATE 6327 [sym__ppStatementBlock];
   STATE 11840 [aux_sym_labeledStatement_repeat1]; STATE 863 [aux_sym__statementsTr_repeat1];
   STATE 6664 [aux_sym_literalString_repeat1]; ACTIONS 397 [anon_sym_SEMI];
   ACTIONS 1308 [anon_sym_COLON]; ACTIONS 399 [anon_sym_LBRACK]; ACTIONS 401 [anon_sym_LPAREN];
   ACTIONS 403 [aux_sym__literalString_token1]; ACTIONS 405 [anon_sym_POUND];
   ACTIONS 407 [aux_sym__literalInt_token1]; ACTIONS 409 [aux_sym__literalInt_token2;
   aux_sym__literalInt_token3]; ACTIONS 407 [aux_sym__literalFloat_token1];
   ACTIONS 411 [aux_sym_ppUsesBlock_token1]; ACTIONS 413 [sym_kAdd; sym_kSub];
   ACTIONS 415 [sym_kAt]; ACTIONS 417 [sym_kTrue; sym_kFalse]; ACTIONS 419 [sym_labelNumber];
   ACTIONS 3 [sym__space]; ACTIONS 5 [sym_ppDirective]; ACTIONS 3 [sym_comment];
   ACTIONS 417 [sym_ppFragmentExpr]; ACTIONS 397 [sym_ppFragmentStmt];
   ACTIONS 403 [sym__literalStringMultiline]; ACTIONS 421 [sym_identifier];
   ACTIONS 423 [sym_kSpecialize]; ACTIONS 427 [sym_kAsm]; ACTIONS 429 [sym_kBegin];
   ACTIONS 431 [sym_kCase]; ACTIONS 433 [sym_kConst]; ACTIONS 1310 [sym_kEnd];
   ACTIONS 437 [sym_kFor]; ACTIONS 439 [sym_kFunction]; ACTIONS 441 [sym_kGoto];
   ACTIONS 443 [sym_kIf]; ACTIONS 445 [sym_kInherited]; ACTIONS 417 [sym_kNil];
   ACTIONS 415 [sym_kNot]; ACTIONS 439 [sym_kProcedure]; ACTIONS 447 [sym_kRaise];
   ACTIONS 449 [sym_kRepeat]; ACTIONS 451 [sym_kString]; ACTIONS 453 [sym_kTry];
   ACTIONS 455 [sym_kVar]; ACTIONS 457 [sym_kWhile]; ACTIONS 459 [sym_kWith]].

(** State 218. *)
Definition ts_parse_table_218 : parse_row :=
  [STATE 6213 [sym_if]; STATE 6327 [sym_ifElse; sym_while; sym_repeat; sym_for; sym_foreach;
   sym_try; sym_case; sym_block; sym_asm; sym_with; sym_raise; sym_statement; sym_goto;
   sym__statement]; STATE 15139 [sym_ifTr; sym_ifElseTr; sym_whileTr; sym_repeatTr; sym_forTr;
   sym_foreachTr; sym_tryTr; sym_caseTr]; STATE 14251 [sym_blockTr]; STATE 15139 [sym_asmTr;
   sym_withTr; sym_raiseTr; sym_statementTr; sym_gotoTr; sym__statementTr];
   STATE 13915 [sym_assignment]; STATE 11785 [sym_varAssignDef]; STATE 13915 [sym_varDef;
   sym_constDef]; STATE 6166 [sym_label]; STATE 15139 [sym__statementsTr]; STATE 8019 [sym__expr;
   sym_exprConditional]; STATE 7478 [sym__ref; sym_lambda; sym_inherited; sym_exprDot;
   sym_exprDeref; sym_exprAs; sym_exprTpl; sym_exprSubscript; sym_exprCall];
   STATE 8019 [sym_exprBinary; sym_exprUnary]; STATE 7478 [sym_exprParens; sym_exprBrackets;
   sym__literal; sym_literalString]; STATE 6664 [sym__literalString; sym_literalChar];
   STATE 7478 [sym_literalNumber]; STATE 7742 [sym__literalInt; sym__literalFloat];
   STATE 1380 [sym__ppIf]; STATE 6327 [sym__ppStatementBlock];
   STATE 11840 [aux_sym_labeledStatement_repeat1]; STATE 863 [aux_sym__statementsTr_repeat1];
   STATE 6664 [aux_sym_literalString_repeat1]; ACTIONS 397 [anon_sym_SEMI];
   ACTIONS 1312 [anon_sym_COLON]; ACTIONS 399 [anon_sym_LBRACK]; ACTIONS 401 [anon_sym_LPAREN];
   ACTIONS 403 [aux_sym__literalString_token1]; ACTIONS 405 [anon_sym_POUND];
   ACTIONS 407 [aux_sym__literalInt_token1]; ACTIONS 409 [aux_sym__literalInt_token2;
   aux_sym__literalInt_token3]; ACTIONS 407 [aux_sym__literalFloat_token1];
   ACTIONS 411 [aux_sym_ppUsesBlock_token1]; ACTIONS 413 [sym_kAdd; sym_kSub];
   ACTIONS 415 [sym_kAt]; ACTIONS 417 [sym_kTrue; sym_kFalse]; ACTIONS 419 [sym_labelNumber];
   ACTIONS 3 [sym__space]; ACTIONS 5 [sym_ppDirective]; ACTIONS 3 [sym_comment];
   ACTIONS 417 [sym_ppFragmentExpr]; ACTIONS 397 [sym_ppFragmentStmt];
   ACTIONS 403 [sym__literalStringMultiline]; ACTIONS 421 [sym_identifier];
   ACTIONS 423 [sym_kSpecialize]; ACTIONS 427 [sym_kAsm]; ACTIONS 429 [sym_kBegin];
   ACTIONS 431 [sym_kCase]; ACTIONS 433 [sym_kConst]; ACTIONS 1314 [sym_kEnd];
   ACTIONS 437 [sym_kFor]; ACTIONS 439 [sym_kFunction]; ACTIONS 441 [sym_kGoto];
   ACTIONS 443 [sym_kIf]; ACTIONS 445 [sym_kInherited]; ACTIONS 417 [sym_kNil];
   ACTIONS 415 [sym_kNot]; ACTIONS 439 [sym_kProcedure]; ACTIONS 447 [sym_kRaise];
   ACTIONS 449 [sym_kRepeat]; ACTIONS 451 [sym_kString]; ACTIONS 453 [sym_kTry];
   ACTIONS 455 [sym_kVar]; ACTIONS 457 [sym_kWhile]; ACTIONS 459 [sym_kWith]].

(** State 219. *)
Definition ts_parse_table_219 : parse_row :=
  [STATE 6273 [sym_if]; STATE 6303 [sym_ifElse; sym_while; sym_repeat; sym_for; sym_foreach;
   sym_try; sym_case; sym_block; sym_asm; sym_with; sym_raise; sym_statement; sym_goto;
   sym__statement]; STATE 15875 [sym_ifTr; sym_ifElseTr; sym_whileTr; sym_repeatTr; sym_forTr;
   sym_foreachTr; sym_tryTr; sym_caseTr]; STATE 14967 [sym_blockTr]; STATE 15875 [sym_asmTr;
   sym_withTr; sym_raiseTr; sym_statementTr; sym_gotoTr; sym__statementTr];
   STATE 13420 [sym_assignment]; STATE 11684 [sym_varAssignDef]; STATE 13420 [sym_varDef;
   sym_constDef]; STATE 6307 [sym_label]; STATE 15875 [sym__statementsTr];
   STATE 15896 [sym_statementsTr]; STATE 8128 [sym__expr; sym_exprConditional];
   STATE 7533 [sym__ref; sym_lambda; sym_inherited; sym_exprDot; sym_exprDeref; sym_exprAs;
   sym_exprTpl; sym_exprSubscript; sym_exprCall]; STATE 8128 [sym_exprBinary; sym_exprUnary];
   STATE 7533 [sym_exprParens; sym_exprBrackets; sym__literal; sym_literalString];
   STATE 6915 [sym__literalString; sym_literalChar]; STATE 7533 [sym_literalNumber];
   STATE 7570 [sym__literalInt; sym__literalFloat]; STATE 1383 [sym__ppIf];
   STATE 6303 [sym__ppStatementBlock]; STATE 11951 [aux_sym_labeledStatement_repeat1];
   STATE 860 [aux_sym__statementsTr_repeat1]; STATE 6915 [aux_sym_literalString_repeat1];
   ACTIONS 925 [anon_sym_SEMI]; ACTIONS 927 [anon_sym_LBRACK]; ACTIONS 929 [anon_sym_LPAREN];
   ACTIONS 931 [aux_sym__literalString_token1]; ACTIONS 933 [anon_sym_POUND];
   ACTIONS 935 [aux_sym__literalInt_token1]; ACTIONS 937 [aux_sym__literalInt_token2;
   aux_sym__literalInt_token3]; ACTIONS 935 [aux_sym__literalFloat_token1];
   ACTIONS 411 [aux_sym_ppUsesBlock_token1]; ACTIONS 939 [sym_kAdd; sym_kSub];
   ACTIONS 941 [sym_kAt]; ACTIONS 943 [sym_kTrue; sym_kFalse]; ACTIONS 945 [sym_labelNumber];
   ACTIONS 3 [sym__space]; ACTIONS 5 [sym_ppDirective]; ACTIONS 3 [sym_comment];
   ACTIONS 943 [sym_ppFragmentExpr]; ACTIONS 925 [sym_ppFragmentStmt];
   ACTIONS 931 [sym__literalStringMultiline]; ACTIONS 947 [sym_identifier];
   ACTIONS 949 [sym_kSpecialize]; ACTIONS 951 [sym_kAsm]; ACTIONS 953 [sym_kBegin];
   ACTIONS 955 [sym_kCase]; ACTIONS 957 [sym_kConst]; ACTIONS 959 [sym_kFor];
   ACTIONS 961 [sym_kFunction]; ACTIONS 963 [sym_kGoto]; ACTIONS 965 [sym_kIf];
   ACTIONS 967 [sym_kInherited]; ACTIONS 943 [sym_kNil]; ACTIONS 941 [sym_kNot];
   ACTIONS 961 [sym_kProcedure]; ACTIONS 969 [sym_kRaise]; ACTIONS 971 [sym_kRepeat];
   ACTIONS 973 [sym_kString]; ACTIONS 975 [sym_kTry]; ACTIONS 1316 [sym_kUntil];
   ACTIONS 979 [sym_kVar]; ACTIONS 981 [sym_kWhile]; ACTIONS 983 [sym_kWith]].

(** State 220. *)
Definition ts_parse_table_220 : parse_row :=
  [STATE 6213 [sym_if]; STATE 6327 [sym_ifElse; sym_while; sym_repeat; sym_for; sym_foreach;
   sym_try; sym_case; sym_block; sym_asm; sym_with; sym_raise; sym_statement; sym_goto;
   sym__statement]; STATE 15991 [sym_ifTr; sym_ifElseTr; sym_whileTr; sym_repeatTr; sym_forTr;
   sym_foreachTr; sym_tryTr; sym_caseTr]; STATE 14251 [sym_blockTr]; STATE 15991 [sym_asmTr;
   sym_withTr; sym_raiseTr; sym_statementTr; sym_gotoTr; sym__statementTr];
   STATE 13915 [sym_assignment]; STATE 11785 [sym_varAssignDef]; STATE 13915 [sym_varDef;
   sym_constDef]; STATE 6166 [sym_label]; STATE 15991 [sym__statementsTr];
   STATE 15256 [sym_statementsTr]; STATE 8019 [sym__expr; sym_exprConditional];
   STATE 7478 [sym__ref; sym_lambda; sym_inherited; sym_exprDot; sym_exprDeref; sym_exprAs;
   sym_exprTpl; sym_exprSubscript; sym_exprCall]; STATE 8019 [sym_exprBinary; sym_exprUnary];
   STATE 7478 [sym_exprParens; sym_exprBrackets; sym__literal; sym_literalString];
   STATE 6664 [sym__literalString; sym_literalChar]; STATE 7478 [sym_literalNumber];
   STATE 7742 [sym__literalInt; sym__literalFloat]; STATE 1380 [sym__ppIf];
   STATE 6327 [sym__ppStatementBlock]; STATE 11840 [aux_sym_labeledStatement_repeat1];
   STATE 863 [aux_sym__statementsTr_repeat1]; STATE 6664 [aux_sym_literalString_repeat1];
   ACTIONS 397 [anon_sym_SEMI]; ACTIONS 399 [anon_sym_LBRACK]; ACTIONS 401 [anon_sym_LPAREN];
   ACTIONS 403 [aux_sym__literalString_token1]; ACTIONS 405 [anon_sym_POUND];
   ACTIONS 407 [aux_sym__literalInt_token1]; ACTIONS 409 [aux_sym__literalInt_token2;
   aux_sym__literalInt_token3]; ACTIONS 407 [aux_sym__literalFloat_token1];
   ACTIONS 411 [aux_sym_ppUsesBlock_token1]; ACTIONS 413 [sym_kAdd; sym_kSub];
   ACTIONS 415 [sym_kAt]; ACTIONS 417 [sym_kTrue; sym_kFalse]; ACTIONS 419 [sym_labelNumber];
   ACTIONS 3 [sym__space]; ACTIONS 5 [sym_ppDirective]; ACTIONS 3 [sym_comment];
   ACTIONS 417 [sym_ppFragmentExpr]; ACTIONS 397 [sym_ppFragmentStmt];
   ACTIONS 403 [sym__literalStringMultiline]; ACTIONS 421 [sym_identifier];
   ACTIONS 423 [sym_kSpecialize]; ACTIONS 427 [sym_kAsm]; ACTIONS 429 [sym_kBegin];
   ACTIONS 431 [sym_kCase]; ACTIONS 433 [sym_kConst]; ACTIONS 1318 [sym_kEnd];
   ACTIONS 437 [sym_kFor]; ACTIONS 439 [sym_kFunction]; ACTIONS 441 [sym_kGoto];
   ACTIONS 443 [sym_kIf]; ACTIONS 445 [sym_kInherited]; ACTIONS 417 [sym_kNil];
   ACTIONS 415 [sym_kNot]; ACTIONS 439 [sym_kProcedure]; ACTIONS 447 [sym_kRaise];
   ACTIONS 449 [sym_kRepeat]; ACTIONS 451 [sym_kString]; ACTIONS 453 [sym_kTry];
   ACTIONS 455 [sym_kVar]; ACTIONS 457 [sym_kWhile]; ACTIONS 459 [sym_kWith]].

(** State 221. *)
Definition ts_parse_table_221 : parse_row :=
  [STATE 6213 [sym_if]; STATE 6327 [sym_ifElse; sym_while; sym_repeat; sym_for; sym_foreach;
   sym_try; sym_case; sym_block; sym_asm; sym_with; sym_raise; sym_statement; sym_goto;
   sym__statement]; STATE 15991 [sym_ifTr; sym_ifElseTr; sym_whileTr; sym_repeatTr; sym_forTr;
   sym_foreachTr; sym_tryTr; sym_caseTr]; STATE 14251 [sym_blockTr]; STATE 15991 [sym_asmTr;
   sym_withTr; sym_raiseTr; sym_statementTr; sym_gotoTr; sym__statementTr];
   STATE 13915 [sym_assignment]; STATE 11785 [sym_varAssignDef]; STATE 13915 [sym_varDef;
   sym_constDef]; STATE 6166 [sym_label]; STATE 15991 [sym__statementsTr];
   STATE 15324 [sym_statementsTr]; STATE 8019 [sym__expr; sym_exprConditional];
   STATE 7478 [sym__ref; sym_lambda; sym_inherited; sym_exprDot; sym_exprDeref; sym_exprAs;
   sym_exprTpl; sym_exprSubscript; sym_exprCall]; STATE 8019 [sym_exprBinary; sym_exprUnary];
   STATE 7478 [sym_exprParens; sym_exprBrackets; sym__literal; sym_literalString];
   STATE 6664 [sym__literalString; sym_literalChar]; STATE 7478 [sym_literalNumber];
   STATE 7742 [sym__literalInt; sym__literalFloat]; STATE 1380 [sym__ppIf];
   STATE 6327 [sym__ppStatementBlock]; STATE 11840 [aux_sym_labeledStatement_repeat1];
   STATE 863 [aux_sym__statementsTr_repeat1]; STATE 6664 [aux_sym_literalString_repeat1];
   ACTIONS 397 [anon_sym_SEMI]; ACTIONS 399 [anon_sym_LBRACK]; ACTIONS 401 [anon_sym_LPAREN];
   ACTIONS 403 [aux_sym__literalString_token1]; ACTIONS 405 [anon_sym_POUND];
   ACTIONS 407 [aux_sym__literalInt_token1]; ACTIONS 409 [aux_sym__literalInt_token2;
   aux_sym__literalInt_token3]; ACTIONS 407 [aux_sym__literalFloat_token1];
   ACTIONS 411 [aux_sym_ppUsesBlock_token1]; ACTIONS 413 [sym_kAdd; sym_kSub];
   ACTIONS 415 [sym_kAt]; ACTIONS 417 [sym_kTrue; sym_kFalse]; ACTIONS 419 [sym_labelNumber];
   ACTIONS 3 [sym__space]; ACTIONS 5 [sym_ppDirective]; ACTIONS 3 [sym_comment];
   ACTIONS 417 [sym_ppFragmentExpr]; ACTIONS 397 [sym_ppFragmentStmt];
   ACTIONS 403 [sym__literalStringMultiline]; ACTIONS 421 [sym_identifier];
   ACTIONS 423 [sym_kSpecialize]; ACTIONS 427 [sym_kAsm]; ACTIONS 429 [sym_kBegin];
   ACTIONS 431 [sym_kCase]; ACTIONS 433 [sym_kConst]; ACTIONS 1320 [sym_kEnd];
   ACTIONS 437 [sym_kFor]; ACTIONS 439 [sym_kFunction]; ACTIONS 441 [sym_kGoto];
   ACTIONS 443 [sym_kIf]; ACTIONS 445 [sym_kInherited]; ACTIONS 417 [sym_kNil];
   ACTIONS 415 [sym_kNot]; ACTIONS 439 [sym_kProcedure]; ACTIONS 447 [sym_kRaise];
   ACTIONS 449 [sym_kRepeat]; ACTIONS 451 [sym_kString]; ACTIONS 453 [sym_kTry];
   ACTIONS 455 [sym_kVar]; ACTIONS 457 [sym_kWhile]; ACTIONS 459 [sym_kWith]].

(** State 222. *)
Definition ts_parse_table_222 : parse_row :=
  [STATE 6213 [sym_if]; STATE 6327 [sym_ifElse; sym_while; sym_repeat; sym_for; sym_foreach;
   sym_try; sym_case; sym_block; sym_asm; sym_with; sym_raise; sym_statement; sym_goto;
   sym__statement]; STATE 15375 [sym_ifTr; sym_ifElseTr; sym_whileTr; sym_repeatTr; sym_forTr;
   sym_foreachTr; sym_tryTr; sym_caseTr]; STATE 14251 [sym_blockTr]; STATE 15375 [sym_asmTr;
   sym_withTr; sym_raiseTr; sym_statementTr; sym_gotoTr; sym__statementTr];
   STATE 13915 [sym_assignment]; STATE 11785 [sym_varAssignDef]; STATE 13915 [sym_varDef;
   sym_constDef]; STATE 6166 [sym_label]; STATE 15375 [sym__statementsTr]; STATE 8019 [sym__expr;
   sym_exprConditional]; STATE 7478 [sym__ref; sym_lambda; sym_inherited; sym_exprDot;
   sym_exprDeref; sym_exprAs; sym_exprTpl; sym_exprSubscript; sym_exprCall];
   STATE 8019 [sym_exprBinary; sym_exprUnary]; STATE 7478 [sym_exprParens; sym_exprBrackets;
   sym__literal; sym_literalString]; STATE 6664 [sym__literalString; sym_literalChar];
   STATE 7478 [sym_literalNumber]; STATE 7742 [sym__literalInt; sym__literalFloat];
   STATE 1380 [sym__ppIf]; STATE 6327 [sym__ppStatementBlock];
   STATE 11840 [aux_sym_labeledStatement_repeat1]; STATE 863 [aux_sym__statementsTr_repeat1];
   STATE 6664 [aux_sym_literalString_repeat1]; ACTIONS 397 [anon_sym_SEMI];
   ACTIONS 1322 [anon_sym_COLON]; ACTIONS 399 [anon_sym_LBRACK]; ACTIONS 401 [anon_sym_LPAREN];
   ACTIONS 403 [aux_sym__literalString_token1]; ACTIONS 405 [anon_sym_POUND];
   ACTIONS 407 [aux_sym__literalInt_token1]; ACTIONS 409 [aux_sym__literalInt_token2;
   aux_sym__literalInt_token3]; ACTIONS 407 [aux_sym__literalFloat_token1];
   ACTIONS 411 [aux_sym_ppUsesBlock_token1]; ACTIONS 413 [sym_kAdd; sym_kSub];
   ACTIONS 415 [sym_kAt]; ACTIONS 417 [sym_kTrue; sym_kFalse]; ACTIONS 419 [sym_labelNumber];
   ACTIONS 3 [sym__space]; ACTIONS 5 [sym_ppDirective]; ACTIONS 3 [sym_comment];
   ACTIONS 417 [sym_ppFragmentExpr]; ACTIONS 397 [sym_ppFragmentStmt];
   ACTIONS 403 [sym__literalStringMultiline]; ACTIONS 421 [sym_identifier];
   ACTIONS 423 [sym_kSpecialize]; ACTIONS 427 [sym_kAsm]; ACTIONS 429 [sym_kBegin];
   ACTIONS 431 [sym_kCase]; ACTIONS 433 [sym_kConst]; ACTIONS 1324 [sym_kEnd];
   ACTIONS 437 [sym_kFor]; ACTIONS 439 [sym_kFunction]; ACTIONS 441 [sym_kGoto];
   ACTIONS 443 [sym_kIf]; ACTIONS 445 [sym_kInherited]; ACTIONS 417 [sym_kNil];
   ACTIONS 415 [sym_kNot]; ACTIONS 439 [sym_kProcedure]; ACTIONS 447 [sym_kRaise];
   ACTIONS 449 [sym_kRepeat]; ACTIONS 451 [sym_kString]; ACTIONS 453 [sym_kTry];
   ACTIONS 455 [sym_kVar]; ACTIONS 457 [sym_kWhile]; ACTIONS 459 [sym_kWith]].

(** State 223. *)
Definition ts_parse_table_223 : parse_row :=
  [STATE 6213 [sym_if]; STATE 6327 [sym_ifElse; sym_while; sym_repeat; sym_for; sym_foreach;
   sym_try; sym_case; sym_block; sym_asm; sym_with; sym_raise; sym_statement; sym_goto;
   sym__statement]; STATE 15434 [sym_ifTr; sym_ifElseTr; sym_whileTr; sym_repeatTr; sym_forTr;
   sym_foreachTr; sym_tryTr; sym_caseTr]; STATE 14251 [sym_blockTr]; STATE 15434 [sym_asmTr;
   sym_withTr; sym_raiseTr; sym_statementTr; sym_gotoTr; sym__statementTr];
   STATE 13915 [sym_assignment]; STATE 11785 [sym_varAssignDef]; STATE 13915 [sym_varDef;
   sym_constDef]; STATE 6166 [sym_label]; STATE 15434 [sym__statementsTr]; STATE 8019 [sym__expr;
   sym_exprConditional]; STATE 7478 [sym__ref; sym_lambda; sym_inherited; sym_exprDot;
   sym_exprDeref; sym_exprAs; sym_exprTpl; sym_exprSubscript; sym_exprCall];
   STATE 8019 [sym_exprBinary; sym_exprUnary]; STATE 7478 [sym_exprParens; sym_exprBrackets;
   sym__literal; sym_literalString]; STATE 6664 [sym__literalString; sym_literalChar];
   STATE 7478 [sym_literalNumber]; STATE 7742 [sym__literalInt; sym__literalFloat];
   STATE 1380 [sym__ppIf]; STATE 6327 [sym__ppStatementBlock];
   STATE 11840 [aux_sym_labeledStatement_repeat1]; STATE 863 [aux_sym__statementsTr_repeat1];
   STATE 6664 [aux_sym_literalString_repeat1]; ACTIONS 397 [anon_sym_SEMI];
   ACTIONS 1326 [anon_sym_COLON]; ACTIONS 399 [anon_sym_LBRACK]; ACTIONS 401 [anon_sym_LPAREN];
   ACTIONS 403 [aux_sym__literalString_token1]; ACTIONS 405 [anon_sym_POUND];
   ACTIONS 407 [aux_sym__literalInt_token1]; ACTIONS 409 [aux_sym__literalInt_token2;
   aux_sym__literalInt_token3]; ACTIONS 407 [aux_sym__literalFloat_token1];
   ACTIONS 411 [aux_sym_ppUsesBlock_token1]; ACTIONS 413 [sym_kAdd; sym_kSub];
   ACTIONS 415 [sym_kAt]; ACTIONS 417 [sym_kTrue; sym_kFalse]; ACTIONS 419 [sym_labelNumber];
   ACTIONS 3 [sym__space]; ACTIONS 5 [sym_ppDirective]; ACTIONS 3 [sym_comment];
   ACTIONS 417 [sym_ppFragmentExpr]; ACTIONS 397 [sym_ppFragmentStmt];
   ACTIONS 403 [sym__literalStringMultiline]; ACTIONS 421 [sym_identifier];
   ACTIONS 423 [sym_kSpecialize]; ACTIONS 427 [sym_kAsm]; ACTIONS 429 [sym_kBegin];
   ACTIONS 431 [sym_kCase]; ACTIONS 433 [sym_kConst]; ACTIONS 1328 [sym_kEnd];
   ACTIONS 437 [sym_kFor]; ACTIONS 439 [sym_kFunction]; ACTIONS 441 [sym_kGoto];
   ACTIONS 443 [sym_kIf]; ACTIONS 445 [sym_kInherited]; ACTIONS 417 [sym_kNil];
   ACTIONS 415 [sym_kNot]; ACTIONS 439 [sym_kProcedure]; ACTIONS 447 [sym_kRaise];
   ACTIONS 449 [sym_kRepeat]; ACTIONS 451 [sym_kString]; ACTIONS 453 [sym_kTry];
   ACTIONS 455 [sym_kVar]; ACTIONS 457 [sym_kWhile]; ACTIONS 459 [sym_kWith]].

(** State 224. *)
Definition ts_parse_table_224 : parse_row :=
  [STATE 6213 [sym_if]; STATE 6327 [sym_ifElse; sym_while; sym_repeat; sym_for; sym_foreach;
   sym_try; sym_case; sym_block; sym_asm; sym_with; sym_raise; sym_statement; sym_goto;
   sym__statement]; STATE 15461 [sym_ifTr; sym_ifElseTr; sym_whileTr; sym_repeatTr; sym_forTr;
   sym_foreachTr; sym_tryTr; sym_caseTr]; STATE 14251 [sym_blockTr]; STATE 15461 [sym_asmTr;
   sym_withTr; sym_raiseTr; sym_statementTr; sym_gotoTr; sym__statementTr];
   STATE 13915 [sym_assignment]; STATE 11785 [sym_varAssignDef]; STATE 13915 [sym_varDef;
   sym_constDef]; STATE 6166 [sym_label]; STATE 15461 [sym__statementsTr]; STATE 8019 [sym__expr;
   sym_exprConditional]; STATE 7478 [sym__ref; sym_lambda; sym_inherited; sym_exprDot;
   sym_exprDeref; sym_exprAs; sym_exprTpl; sym_exprSubscript; sym_exprCall];
   STATE 8019 [sym_exprBinary; sym_exprUnary]; STATE 7478 [sym_exprParens; sym_exprBrackets;
   sym__literal; sym_literalString]; STATE 6664 [sym__literalString; sym_literalChar];
   STATE 7478 [sym_literalNumber]; STATE 7742 [sym__literalInt; sym__literalFloat];
   STATE 1380 [sym__ppIf]; STATE 6327 [sym__ppStatementBlock];
   STATE 11840 [aux_sym_labeledStatement_repeat1]; STATE 863 [aux_sym__statementsTr_repeat1];
   STATE 6664 [aux_sym_literalString_repeat1]; ACTIONS 397 [anon_sym_SEMI];
   ACTIONS 1330 [anon_sym_COLON]; ACTIONS 399 [anon_sym_LBRACK]; ACTIONS 401 [anon_sym_LPAREN];
   ACTIONS 403 [aux_sym__literalString_token1]; ACTIONS 405 [anon_sym_POUND];
   ACTIONS 407 [aux_sym__literalInt_token1]; ACTIONS 409 [aux_sym__literalInt_token2;
   aux_sym__literalInt_token3]; ACTIONS 407 [aux_sym__literalFloat_token1];
   ACTIONS 411 [aux_sym_ppUsesBlock_token1]; ACTIONS 413 [sym_kAdd; sym_kSub];
   ACTIONS 415 [sym_kAt]; ACTIONS 417 [sym_kTrue; sym_kFalse]; ACTIONS 419 [sym_labelNumber];
   ACTIONS 3 [sym__space]; ACTIONS 5 [sym_ppDirective]; ACTIONS 3 [sym_comment];
   ACTIONS 417 [sym_ppFragmentExpr]; ACTIONS 397 [sym_ppFragmentStmt];
   ACTIONS 403 [sym__literalStringMultiline]; ACTIONS 421 [sym_identifier];
   ACTIONS 423 [sym_kSpecialize]; ACTIONS 427 [sym_kAsm]; ACTIONS 429 [sym_kBegin];
   ACTIONS 431 [sym_kCase]; ACTIONS 433 [sym_kConst]; ACTIONS 1332 [sym_kEnd];
   ACTIONS 437 [sym_kFor]; ACTIONS 439 [sym_kFunction]; ACTIONS 441 [sym_kGoto];
   ACTIONS 443 [sym_kIf]; ACTIONS 445 [sym_kInherited]; ACTIONS 417 [sym_kNil];
   ACTIONS 415 [sym_kNot]; ACTIONS 439 [sym_kProcedure]; ACTIONS 447 [sym_kRaise];
   ACTIONS 449 [sym_kRepeat]; ACTIONS 451 [sym_kString]; ACTIONS 453 [sym_kTry];
   ACTIONS 455 [sym_kVar]; ACTIONS 457 [sym_kWhile]; ACTIONS 459 [sym_kWith]].

(** State 225. *)
Definition ts_parse_table_225 : parse_row :=
  [STATE 2899 [sym__ppIf]; STATE 996 [sym__procAttributeNoExt];
   STATE 1005 [sym__procAttributesPp]; STATE 15262 [sym_procAttribute];
   STATE 239 [aux_sym__declProc_repeat1]; ACTIONS 1334 [anon_sym_SEMI; anon_sym_COMMA];
   ACTIONS 1336 [anon_sym_LBRACK]; ACTIONS 1339 [anon_sym_LPAREN];
   ACTIONS 1334 [aux_sym__literalString_token1; anon_sym_POUND];
   ACTIONS 1339 [aux_sym__literalInt_token1]; ACTIONS 1334 [aux_sym__literalInt_token2;
   aux_sym__literalInt_token3]; ACTIONS 1339 [aux_sym__literalFloat_token1];
   ACTIONS 1341 [aux_sym_ppUsesBlock_token1]; ACTIONS 1334 [aux_sym_ppUsesBlock_token2;
   aux_sym_ppUsesBlock_token3]; ACTIONS 1339 [sym_kAdd; sym_kSub]; ACTIONS 1334 [sym_kAt;
   sym_kTrue; sym_kFalse]; ACTIONS 3 [sym__space]; ACTIONS 5 [sym_ppDirective];
   ACTIONS 3 [sym_comment]; ACTIONS 1334 [sym_ppFragmentExpr; sym__literalStringMultiline;
   sym_identifier]; ACTIONS 1344 [sym_kDefault; sym_kNodefault]; ACTIONS 1347 [sym_kDispId];
   ACTIONS 1334 [sym_kGeneric; sym_kSpecialize; sym_kOperator]; ACTIONS 1350 [sym_kPublic];
   ACTIONS 1334 [sym_kForward]; ACTIONS 1344 [sym_kStatic; sym_kVirtual; sym_kAbstract;
   sym_kDynamic; sym_kOverride; sym_kOverload; sym_kReintroduce; sym_kStdcall; sym_kCdecl;
   sym_kCppdecl; sym_kPascal; sym_kRegister; sym_kMwpascal]; ACTIONS 1334 [sym_kExternal];
   ACTIONS 1353 [sym_kMessage]; ACTIONS 1356 [sym_kDeprecated]; ACTIONS 1344 [sym_kExperimental;
   sym_kPlatform; sym_kUnimplemented; sym_kCvar]; ACTIONS 1359 [sym_kExport];
   ACTIONS 1344 [sym_kFar; sym_kNear; sym_kSafecall; sym_kAssembler; sym_kNostackframe;
   sym_kInterrupt; sym_kNoreturn; sym_kIocheck; sym_kLocal; sym_kHardfloat; sym_kSoftfloat;
   sym_kMs_abi_default; sym_kMs_abi_cdecl; sym_kSaveregisters; sym_kSysv_abi_default;
   sym_kSysv_abi_cdecl; sym_kVectorcall; sym_kVarargs; sym_kWinapi]; ACTIONS 1362 [sym_kAlias];
   ACTIONS 1334 [sym_kAsm; sym_kBegin; sym_kCase; sym_kClass; sym_kConst; sym_kConstructor;
   sym_kDestructor; sym_kExports; sym_kFor; sym_kFunction; sym_kGoto; sym_kIf; sym_kInherited];
   ACTIONS 1016 [sym_kInline]; ACTIONS 1334 [sym_kLabel; sym_kNil; sym_kNot; sym_kProcedure;
   sym_kProperty; sym_kRaise; sym_kRepeat; sym_kResourcestring; sym_kString; sym_kThreadvar;
   sym_kTry; sym_kType; sym_kUses; sym_kVar; sym_kWhile; sym_kWith]].

(** State 226. *)
Definition ts_parse_table_226 : parse_row :=
  [STATE 6213 [sym_if]; STATE 6327 [sym_ifElse; sym_while; sym_repeat; sym_for; sym_foreach;
   sym_try; sym_case; sym_block; sym_asm; sym_with; sym_raise; sym_statement; sym_goto;
   sym__statement]; STATE 15991 [sym_ifTr; sym_ifElseTr; sym_whileTr; sym_repeatTr; sym_forTr;
   sym_foreachTr; sym_tryTr; sym_caseTr]; STATE 14251 [sym_blockTr]; STATE 15991 [sym_asmTr;
   sym_withTr; sym_raiseTr; sym_statementTr; sym_gotoTr; sym__statementTr];
   STATE 13915 [sym_assignment]; STATE 11785 [sym_varAssignDef]; STATE 13915 [sym_varDef;
   sym_constDef]; STATE 6166 [sym_label]; STATE 15991 [sym__statementsTr];
   STATE 15634 [sym_statementsTr]; STATE 8019 [sym__expr; sym_exprConditional];
   STATE 7478 [sym__ref; sym_lambda; sym_inherited; sym_exprDot; sym_exprDeref; sym_exprAs;
   sym_exprTpl; sym_exprSubscript; sym_exprCall]; STATE 8019 [sym_exprBinary; sym_exprUnary];
   STATE 7478 [sym_exprParens; sym_exprBrackets; sym__literal; sym_literalString];
   STATE 6664 [sym__literalString; sym_literalChar]; STATE 7478 [sym_literalNumber];
   STATE 7742 [sym__literalInt; sym__literalFloat]; STATE 1380 [sym__ppIf];
   STATE 6327 [sym__ppStatementBlock]; STATE 11840 [aux_sym_labeledStatement_repeat1];
   STATE 863 [aux_sym__statementsTr_repeat1]; STATE 6664 [aux_sym_literalString_repeat1];
   ACTIONS 397 [anon_sym_SEMI]; ACTIONS 399 [anon_sym_LBRACK]; ACTIONS 401 [anon_sym_LPAREN];
   ACTIONS 403 [aux_sym__literalString_token1]; ACTIONS 405 [anon_sym_POUND];
   ACTIONS 407 [aux_sym__literalInt_token1]; ACTIONS 409 [aux_sym__literalInt_token2;
   aux_sym__literalInt_token3]; ACTIONS 407 [aux_sym__literalFloat_token1];
   ACTIONS 411 [aux_sym_ppUsesBlock_token1]; ACTIONS 413 [sym_kAdd; sym_kSub];
   ACTIONS 415 [sym_kAt]; ACTIONS 417 [sym_kTrue; sym_kFalse]; ACTIONS 419 [sym_labelNumber];
   ACTIONS 3 [sym__space]; ACTIONS 5 [sym_ppDirective]; ACTIONS 3 [sym_comment];
   ACTIONS 417 [sym_ppFragmentExpr]; ACTIONS 397 [sym_ppFragmentStmt];
   ACTIONS 403 [sym__literalStringMultiline]; ACTIONS 421 [sym_identifier];
   ACTIONS 423 [sym_kSpecialize]; ACTIONS 427 [sym_kAsm]; ACTIONS 429 [sym_kBegin];
   ACTIONS 431 [sym_kCase]; ACTIONS 433 [sym_kConst]; ACTIONS 1365 [sym_kEnd];
   ACTIONS 437 [sym_kFor]; ACTIONS 439 [sym_kFunction]; ACTIONS 441 [sym_kGoto];
   ACTIONS 443 [sym_kIf]; ACTIONS 445 [sym_kInherited]; ACTIONS 417 [sym_kNil];
   ACTIONS 415 [sym_kNot]; ACTIONS 439 [sym_kProcedure]; ACTIONS 447 [sym_kRaise];
   ACTIONS 449 [sym_kRepeat]; ACTIONS 451 [sym_kString]; ACTIONS 453 [sym_kTry];
   ACTIONS 455 [sym_kVar]; ACTIONS 457 [sym_kWhile]; ACTIONS 459 [sym_kWith]].

(** State 227. *)
Definition ts_parse_table_227 : parse_row :=
  [STATE 6213 [sym_if]; STATE 6327 [sym_ifElse; sym_while; sym_repeat; sym_for; sym_foreach;
   sym_try; sym_case; sym_block; sym_asm; sym_with; sym_raise; sym_statement; sym_goto;
   sym__statement]; STATE 15991 [sym_ifTr; sym_ifElseTr; sym_whileTr; sym_repeatTr; sym_forTr;
   sym_foreachTr; sym_tryTr; sym_caseTr]; STATE 14251 [sym_blockTr]; STATE 15991 [sym_asmTr;
   sym_withTr; sym_raiseTr; sym_statementTr; sym_gotoTr; sym__statementTr];
   STATE 13915 [sym_assignment]; STATE 11785 [sym_varAssignDef]; STATE 13915 [sym_varDef;
   sym_constDef]; STATE 6166 [sym_label]; STATE 15991 [sym__statementsTr];
   STATE 15751 [sym_statementsTr]; STATE 8019 [sym__expr; sym_exprConditional];
   STATE 7478 [sym__ref; sym_lambda; sym_inherited; sym_exprDot; sym_exprDeref; sym_exprAs;
   sym_exprTpl; sym_exprSubscript; sym_exprCall]; STATE 8019 [sym_exprBinary; sym_exprUnary];
   STATE 7478 [sym_exprParens; sym_exprBrackets; sym__literal; sym_literalString];
   STATE 6664 [sym__literalString; sym_literalChar]; STATE 7478 [sym_literalNumber];
   STATE 7742 [sym__literalInt; sym__literalFloat]; STATE 1380 [sym__ppIf];
   STATE 6327 [sym__ppStatementBlock]; STATE 11840 [aux_sym_labeledStatement_repeat1];
   STATE 863 [aux_sym__statementsTr_repeat1]; STATE 6664 [aux_sym_literalString_repeat1];
   ACTIONS 397 [anon_sym_SEMI]; ACTIONS 399 [anon_sym_LBRACK]; ACTIONS 401 [anon_sym_LPAREN];
   ACTIONS 403 [aux_sym__literalString_token1]; ACTIONS 405 [anon_sym_POUND];
   ACTIONS 407 [aux_sym__literalInt_token1]; ACTIONS 409 [aux_sym__literalInt_token2;
   aux_sym__literalInt_token3]; ACTIONS 407 [aux_sym__literalFloat_token1];
   ACTIONS 411 [aux_sym_ppUsesBlock_token1]; ACTIONS 413 [sym_kAdd; sym_kSub];
   ACTIONS 415 [sym_kAt]; ACTIONS 417 [sym_kTrue; sym_kFalse]; ACTIONS 419 [sym_labelNumber];
   ACTIONS 3 [sym__space]; ACTIONS 5 [sym_ppDirective]; ACTIONS 3 [sym_comment];
   ACTIONS 417 [sym_ppFragmentExpr]; ACTIONS 397 [sym_ppFragmentStmt];
   ACTIONS 403 [sym__literalStringMultiline]; ACTIONS 421 [sym_identifier];
   ACTIONS 423 [sym_kSpecialize]; ACTIONS 427 [sym_kAsm]; ACTIONS 429 [sym_kBegin];
   ACTIONS 431 [sym_kCase]; ACTIONS 433 [sym_kConst]; ACTIONS 1367 [sym_kEnd];
   ACTIONS 437 [sym_kFor]; ACTIONS 439 [sym_kFunction]; ACTIONS 441 [sym_kGoto];
   ACTIONS 443 [sym_kIf]; ACTIONS 445 [sym_kInherited]; ACTIONS 417 [sym_kNil];
   ACTIONS 415 [sym_kNot]; ACTIONS 439 [sym_kProcedure]; ACTIONS 447 [sym_kRaise];
   ACTIONS 449 [sym_kRepeat]; ACTIONS 451 [sym_kString]; ACTIONS 453 [sym_kTry];
   ACTIONS 455 [sym_kVar]; ACTIONS 457 [sym_kWhile]; ACTIONS 459 [sym_kWith]].

(** State 228. *)
Definition ts_parse_table_228 : parse_row :=
  [STATE 6213 [sym_if]; STATE 6327 [sym_ifElse; sym_while; sym_repeat; sym_for; sym_foreach;
   sym_try; sym_case; sym_block; sym_asm; sym_with; sym_raise; sym_statement; sym_goto;
   sym__statement]; STATE 15805 [sym_ifTr; sym_ifElseTr; sym_whileTr; sym_repeatTr; sym_forTr;
   sym_foreachTr; sym_tryTr; sym_caseTr]; STATE 14251 [sym_blockTr]; STATE 15805 [sym_asmTr;
   sym_withTr; sym_raiseTr; sym_statementTr; sym_gotoTr; sym__statementTr];
   STATE 13915 [sym_assignment]; STATE 11785 [sym_varAssignDef]; STATE 13915 [sym_varDef;
   sym_constDef]; STATE 6166 [sym_label]; STATE 15805 [sym__statementsTr]; STATE 8019 [sym__expr;
   sym_exprConditional]; STATE 7478 [sym__ref; sym_lambda; sym_inherited; sym_exprDot;
   sym_exprDeref; sym_exprAs; sym_exprTpl; sym_exprSubscript; sym_exprCall];
   STATE 8019 [sym_exprBinary; sym_exprUnary]; STATE 7478 [sym_exprParens; sym_exprBrackets;
   sym__literal; sym_literalString]; STATE 6664 [sym__literalString; sym_literalChar];
   STATE 7478 [sym_literalNumber]; STATE 7742 [sym__literalInt; sym__literalFloat];
   STATE 1380 [sym__ppIf]; STATE 6327 [sym__ppStatementBlock];
   STATE 11840 [aux_sym_labeledStatement_repeat1]; STATE 863 [aux_sym__statementsTr_repeat1];
   STATE 6664 [aux_sym_literalString_repeat1]; ACTIONS 397 [anon_sym_SEMI];
   ACTIONS 1369 [anon_sym_COLON]; ACTIONS 399 [anon_sym_LBRACK]; ACTIONS 401 [anon_sym_LPAREN];
   ACTIONS 403 [aux_sym__literalString_token1]; ACTIONS 405 [anon_sym_POUND];
   ACTIONS 407 [aux_sym__literalInt_token1]; ACTIONS 409 [aux_sym__literalInt_token2;
   aux_sym__literalInt_token3]; ACTIONS 407 [aux_sym__literalFloat_token1];
   ACTIONS 411 [aux_sym_ppUsesBlock_token1]; ACTIONS 413 [sym_kAdd; sym_kSub];
   ACTIONS 415 [sym_kAt]; ACTIONS 417 [sym_kTrue; sym_kFalse]; ACTIONS 419 [sym_labelNumber];
   ACTIONS 3 [sym__space]; ACTIONS 5 [sym_ppDirective]; ACTIONS 3 [sym_comment];
   ACTIONS 417 [sym_ppFragmentExpr]; ACTIONS 397 [sym_ppFragmentStmt];
   ACTIONS 403 [sym__literalStringMultiline]; ACTIONS 421 [sym_identifier];
   ACTIONS 423 [sym_kSpecialize]; ACTIONS 427 [sym_kAsm]; ACTIONS 429 [sym_kBegin];
   ACTIONS 431 [sym_kCase]; ACTIONS 433 [sym_kConst]; ACTIONS 1371 [sym_kEnd];
   ACTIONS 437 [sym_kFor]; ACTIONS 439 [sym_kFunction]; ACTIONS 441 [sym_kGoto];
   ACTIONS 443 [sym_kIf]; ACTIONS 445 [sym_kInherited]; ACTIONS 417 [sym_kNil];
   ACTIONS 415 [sym_kNot]; ACTIONS 439 [sym_kProcedure]; ACTIONS 447 [sym_kRaise];
   ACTIONS 449 [sym_kRepeat]; ACTIONS 451 [sym_kString]; ACTIONS 453 [sym_kTry];
   ACTIONS 455 [sym_kVar]; ACTIONS 457 [sym_kWhile]; ACTIONS 459 [sym_kWith]].

(** State 229. *)
Definition ts_parse_table_229 : parse_row :=
  [STATE 6213 [sym_if]; STATE 6327 [sym_ifElse; sym_while; sym_repeat; sym_for; sym_foreach;
   sym_try; sym_case; sym_block; sym_asm; sym_with; sym_raise; sym_statement; sym_goto;
   sym__statement]; STATE 15829 [sym_ifTr; sym_ifElseTr; sym_whileTr; sym_repeatTr; sym_forTr;
   sym_foreachTr; sym_tryTr; sym_caseTr]; STATE 14251 [sym_blockTr]; STATE 15829 [sym_asmTr;
   sym_withTr; sym_raiseTr; sym_statementTr; sym_gotoTr; sym__statementTr];
   STATE 13915 [sym_assignment]; STATE 11785 [sym_varAssignDef]; STATE 13915 [sym_varDef;
   sym_constDef]; STATE 6166 [sym_label]; STATE 15829 [sym__statementsTr]; STATE 8019 [sym__expr;
   sym_exprConditional]; STATE 7478 [sym__ref; sym_lambda; sym_inherited; sym_exprDot;
   sym_exprDeref; sym_exprAs; sym_exprTpl; sym_exprSubscript; sym_exprCall];
   STATE 8019 [sym_exprBinary; sym_exprUnary]; STATE 7478 [sym_exprParens; sym_exprBrackets;
   sym__literal; sym_literalString]; STATE 6664 [sym__literalString; sym_literalChar];
   STATE 7478 [sym_literalNumber]; STATE 7742 [sym__literalInt; sym__literalFloat];
   STATE 1380 [sym__ppIf]; STATE 6327 [sym__ppStatementBlock];
   STATE 11840 [aux_sym_labeledStatement_repeat1]; STATE 863 [aux_sym__statementsTr_repeat1];
   STATE 6664 [aux_sym_literalString_repeat1]; ACTIONS 397 [anon_sym_SEMI];
   ACTIONS 1373 [anon_sym_COLON]; ACTIONS 399 [anon_sym_LBRACK]; ACTIONS 401 [anon_sym_LPAREN];
   ACTIONS 403 [aux_sym__literalString_token1]; ACTIONS 405 [anon_sym_POUND];
   ACTIONS 407 [aux_sym__literalInt_token1]; ACTIONS 409 [aux_sym__literalInt_token2;
   aux_sym__literalInt_token3]; ACTIONS 407 [aux_sym__literalFloat_token1];
   ACTIONS 411 [aux_sym_ppUsesBlock_token1]; ACTIONS 413 [sym_kAdd; sym_kSub];
   ACTIONS 415 [sym_kAt]; ACTIONS 417 [sym_kTrue; sym_kFalse]; ACTIONS 419 [sym_labelNumber];
   ACTIONS 3 [sym__space]; ACTIONS 5 [sym_ppDirective]; ACTIONS 3 [sym_comment];
   ACTIONS 417 [sym_ppFragmentExpr]; ACTIONS 397 [sym_ppFragmentStmt];
   ACTIONS 403 [sym__literalStringMultiline]; ACTIONS 421 [sym_identifier];
   ACTIONS 423 [sym_kSpecialize]; ACTIONS 427 [sym_kAsm]; ACTIONS 429 [sym_kBegin];
   ACTIONS 431 [sym_kCase]; ACTIONS 433 [sym_kConst]; ACTIONS 1375 [sym_kEnd];
   ACTIONS 437 [sym_kFor]; ACTIONS 439 [sym_kFunction]; ACTIONS 441 [sym_kGoto];
   ACTIONS 443 [sym_kIf]; ACTIONS 445 [sym_kInherited]; ACTIONS 417 [sym_kNil];
   ACTIONS 415 [sym_kNot]; ACTIONS 439 [sym_kProcedure]; ACTIONS 447 [sym_kRaise];
   ACTIONS 449 [sym_kRepeat]; ACTIONS 451 [sym_kString]; ACTIONS 453 [sym_kTry];
   ACTIONS 455 [sym_kVar]; ACTIONS 457 [sym_kWhile]; ACTIONS 459 [sym_kWith]].

(** State 230. *)
Definition ts_parse_table_230 : parse_row :=
  [STATE 6213 [sym_if]; STATE 6327 [sym_ifElse; sym_while; sym_repeat; sym_for; sym_foreach;
   sym_try; sym_case; sym_block; sym_asm; sym_with; sym_raise; sym_statement; sym_goto;
   sym__statement]; STATE 15834 [sym_ifTr; sym_ifElseTr; sym_whileTr; sym_repeatTr; sym_forTr;
   sym_foreachTr; sym_tryTr; sym_caseTr]; STATE 14251 [sym_blockTr]; STATE 15834 [sym_asmTr;
   sym_withTr; sym_raiseTr; sym_statementTr; sym_gotoTr; sym__statementTr];
   STATE 13915 [sym_assignment]; STATE 11785 [sym_varAssignDef]; STATE 13915 [sym_varDef;
   sym_constDef]; STATE 6166 [sym_label]; STATE 15834 [sym__statementsTr]; STATE 8019 [sym__expr;
   sym_exprConditional]; STATE 7478 [sym__ref; sym_lambda; sym_inherited; sym_exprDot;
   sym_exprDeref; sym_exprAs; sym_exprTpl; sym_exprSubscript; sym_exprCall];
   STATE 8019 [sym_exprBinary; sym_exprUnary]; STATE 7478 [sym_exprParens; sym_exprBrackets;
   sym__literal; sym_literalString]; STATE 6664 [sym__literalString; sym_literalChar];
   STATE 7478 [sym_literalNumber]; STATE 7742 [sym__literalInt; sym__literalFloat];
   STATE 1380 [sym__ppIf]; STATE 6327 [sym__ppStatementBlock];
   STATE 11840 [aux_sym_labeledStatement_repeat1]; STATE 863 [aux_sym__statementsTr_repeat1];
   STATE 6664 [aux_sym_literalString_repeat1]; ACTIONS 397 [anon_sym_SEMI];
   ACTIONS 1377 [anon_sym_COLON]; ACTIONS 399 [anon_sym_LBRACK]; ACTIONS 401 [anon_sym_LPAREN];
   ACTIONS 403 [aux_sym__literalString_token1]; ACTIONS 405 [anon_sym_POUND];
   ACTIONS 407 [aux_sym__literalInt_token1]; ACTIONS 409 [aux_sym__literalInt_token2;
   aux_sym__literalInt_token3]; ACTIONS 407 [aux_sym__literalFloat_token1];
   ACTIONS 411 [aux_sym_ppUsesBlock_token1]; ACTIONS 413 [sym_kAdd; sym_kSub];
   ACTIONS 415 [sym_kAt]; ACTIONS 417 [sym_kTrue; sym_kFalse]; ACTIONS 419 [sym_labelNumber];
   ACTIONS 3 [sym__space]; ACTIONS 5 [sym_ppDirective]; ACTIONS 3 [sym_comment];
   ACTIONS 417 [sym_ppFragmentExpr]; ACTIONS 397 [sym_ppFragmentStmt];
   ACTIONS 403 [sym__literalStringMultiline]; ACTIONS 421 [sym_identifier];
   ACTIONS 423 [sym_kSpecialize]; ACTIONS 427 [sym_kAsm]; ACTIONS 429 [sym_kBegin];
   ACTIONS 431 [sym_kCase]; ACTIONS 433 [sym_kConst]; ACTIONS 1379 [sym_kEnd];
   ACTIONS 437 [sym_kFor]; ACTIONS 439 [sym_kFunction]; ACTIONS 441 [sym_kGoto];
   ACTIONS 443 [sym_kIf]; ACTIONS 445 [sym_kInherited]; ACTIONS 417 [sym_kNil];
   ACTIONS 415 [sym_kNot]; ACTIONS 439 [sym_kProcedure]; ACTIONS 447 [sym_kRaise];
   ACTIONS 449 [sym_kRepeat]; ACTIONS 451 [sym_kString]; ACTIONS 453 [sym_kTry];
   ACTIONS 455 [sym_kVar]; ACTIONS 457 [sym_kWhile]; ACTIONS 459 [sym_kWith]].

(** State 231. *)
Definition ts_parse_table_231 : parse_row :=
  [STATE 6213 [sym_if]; STATE 6327 [sym_ifElse; sym_while; sym_repeat; sym_for; sym_foreach;
   sym_try; sym_case; sym_block; sym_asm; sym_with; sym_raise; sym_statement; sym_goto;
   sym__statement]; STATE 15991 [sym_ifTr; sym_ifElseTr; sym_whileTr; sym_repeatTr; sym_forTr;
   sym_foreachTr; sym_tryTr; sym_caseTr]; STATE 14251 [sym_blockTr]; STATE 15991 [sym_asmTr;
   sym_withTr; sym_raiseTr; sym_statementTr; sym_gotoTr; sym__statementTr];
   STATE 13915 [sym_assignment]; STATE 11785 [sym_varAssignDef]; STATE 13915 [sym_varDef;
   sym_constDef]; STATE 6166 [sym_label]; STATE 15991 [sym__statementsTr];
   STATE 15887 [sym_statementsTr]; STATE 8019 [sym__expr; sym_exprConditional];
   STATE 7478 [sym__ref; sym_lambda; sym_inherited; sym_exprDot; sym_exprDeref; sym_exprAs;
   sym_exprTpl; sym_exprSubscript; sym_exprCall]; STATE 8019 [sym_exprBinary; sym_exprUnary];
   STATE 7478 [sym_exprParens; sym_exprBrackets; sym__literal; sym_literalString];
   STATE 6664 [sym__literalString; sym_literalChar]; STATE 7478 [sym_literalNumber];
   STATE 7742 [sym__literalInt; sym__literalFloat]; STATE 1380 [sym__ppIf];
   STATE 6327 [sym__ppStatementBlock]; STATE 11840 [aux_sym_labeledStatement_repeat1];
   STATE 863 [aux_sym__statementsTr_repeat1]; STATE 6664 [aux_sym_literalString_repeat1];
   ACTIONS 397 [anon_sym_SEMI]; ACTIONS 399 [anon_sym_LBRACK]; ACTIONS 401 [anon_sym_LPAREN];
   ACTIONS 403 [aux_sym__literalString_token1]; ACTIONS 405 [anon_sym_POUND];
   ACTIONS 407 [aux_sym__literalInt_token1]; ACTIONS 409 [aux_sym__literalInt_token2;
   aux_sym__literalInt_token3]; ACTIONS 407 [aux_sym__literalFloat_token1];
   ACTIONS 411 [aux_sym_ppUsesBlock_token1]; ACTIONS 413 [sym_kAdd; sym_kSub];
   ACTIONS 415 [sym_kAt]; ACTIONS 417 [sym_kTrue; sym_kFalse]; ACTIONS 419 [sym_labelNumber];
   ACTIONS 3 [sym__space]; ACTIONS 5 [sym_ppDirective]; ACTIONS 3 [sym_comment];
   ACTIONS 417 [sym_ppFragmentExpr]; ACTIONS 397 [sym_ppFragmentStmt];
   ACTIONS 403 [sym__literalStringMultiline]; ACTIONS 421 [sym_identifier];
   ACTIONS 423 [sym_kSpecialize]; ACTIONS 427 [sym_kAsm]; ACTIONS 429 [sym_kBegin];
   ACTIONS 431 [sym_kCase]; ACTIONS 433 [sym_kConst]; ACTIONS 1381 [sym_kEnd];
   ACTIONS 437 [sym_kFor]; ACTIONS 439 [sym_kFunction]; ACTIONS 441 [sym_kGoto];
   ACTIONS 443 [sym_kIf]; ACTIONS 445 [sym_kInherited]; ACTIONS 417 [sym_kNil];
   ACTIONS 415 [sym_kNot]; ACTIONS 439 [sym_kProcedure]; ACTIONS 447 [sym_kRaise];
   ACTIONS 449 [sym_kRepeat]; ACTIONS 451 [sym_kString]; ACTIONS 453 [sym_kTry];
   ACTIONS 455 [sym_kVar]; ACTIONS 457 [sym_kWhile]; ACTIONS 459 [sym_kWith]].

(** State 232. *)
Definition ts_parse_table_232 : parse_row :=
  [STATE 2899 [sym__ppIf]; STATE 996 [sym__procAttributeNoExt];
   STATE 1005 [sym__procAttributesPp]; STATE 15262 [sym_procAttribute];
   STATE 248 [aux_sym__declProc_repeat1]; ACTIONS 1383 [anon_sym_SEMI; anon_sym_COMMA];
   ACTIONS 1385 [anon_sym_LBRACK]; ACTIONS 1388 [anon_sym_LPAREN];
   ACTIONS 1383 [aux_sym__literalString_token1; anon_sym_POUND];
   ACTIONS 1388 [aux_sym__literalInt_token1]; ACTIONS 1383 [aux_sym__literalInt_token2;
   aux_sym__literalInt_token3]; ACTIONS 1388 [aux_sym__literalFloat_token1];
   ACTIONS 1390 [aux_sym_ppUsesBlock_token1]; ACTIONS 1383 [aux_sym_ppUsesBlock_token2;
   aux_sym_ppUsesBlock_token3]; ACTIONS 1388 [sym_kAdd; sym_kSub]; ACTIONS 1383 [sym_kAt;
   sym_kTrue; sym_kFalse]; ACTIONS 3 [sym__space]; ACTIONS 5 [sym_ppDirective];
   ACTIONS 3 [sym_comment]; ACTIONS 1383 [sym_ppFragmentExpr; sym__literalStringMultiline;
   sym_identifier]; ACTIONS 1393 [sym_kDefault; sym_kNodefault]; ACTIONS 1396 [sym_kDispId];
   ACTIONS 1383 [sym_kGeneric; sym_kSpecialize; sym_kOperator]; ACTIONS 1399 [sym_kPublic];
   ACTIONS 1383 [sym_kForward]; ACTIONS 1393 [sym_kStatic; sym_kVirtual; sym_kAbstract;
   sym_kDynamic; sym_kOverride; sym_kOverload; sym_kReintroduce; sym_kStdcall; sym_kCdecl;
   sym_kCppdecl; sym_kPascal; sym_kRegister; sym_kMwpascal]; ACTIONS 1383 [sym_kExternal];
   ACTIONS 1402 [sym_kMessage]; ACTIONS 1405 [sym_kDeprecated]; ACTIONS 1393 [sym_kExperimental;
   sym_kPlatform; sym_kUnimplemented; sym_kCvar]; ACTIONS 1408 [sym_kExport];
   ACTIONS 1393 [sym_kFar; sym_kNear; sym_kSafecall; sym_kAssembler; sym_kNostackframe;
   sym_kInterrupt; sym_kNoreturn; sym_kIocheck; sym_kLocal; sym_kHardfloat; sym_kSoftfloat;
   sym_kMs_abi_default; sym_kMs_abi_cdecl; sym_kSaveregisters; sym_kSysv_abi_default;
   sym_kSysv_abi_cdecl; sym_kVectorcall; sym_kVarargs; sym_kWinapi]; ACTIONS 1411 [sym_kAlias];
   ACTIONS 1383 [sym_kAsm; sym_kBegin; sym_kCase; sym_kClass; sym_kConst; sym_kConstructor;
   sym_kDestructor; sym_kExports; sym_kFor; sym_kFunction; sym_kGoto; sym_kIf; sym_kInherited];
   ACTIONS 1016 [sym_kInline]; ACTIONS 1383 [sym_kLabel; sym_kNil; sym_kNot; sym_kProcedure;
   sym_kProperty; sym_kRaise; sym_kRepeat; sym_kResourcestring; sym_kString; sym_kThreadvar;
   sym_kTry; sym_kType; sym_kUses; sym_kVar; sym_kWhile; sym_kWith]].

(** State 233. *)
Definition ts_parse_table_233 : parse_row :=
  [STATE 6213 [sym_if]; STATE 6327 [sym_ifElse; sym_while; sym_repeat; sym_for; sym_foreach;
   sym_try; sym_case; sym_block; sym_asm; sym_with; sym_raise; sym_statement; sym_goto;
   sym__statement]; STATE 15991 [sym_ifTr; sym_ifElseTr; sym_whileTr; sym_repeatTr; sym_forTr;
   sym_foreachTr; sym_tryTr; sym_caseTr]; STATE 14251 [sym_blockTr]; STATE 15991 [sym_asmTr;
   sym_withTr; sym_raiseTr; sym_statementTr; sym_gotoTr; sym__statementTr];
   STATE 13915 [sym_assignment]; STATE 11785 [sym_varAssignDef]; STATE 13915 [sym_varDef;
   sym_constDef]; STATE 6166 [sym_label]; STATE 15991 [sym__statementsTr];
   STATE 15958 [sym_statementsTr]; STATE 8019 [sym__expr; sym_exprConditional];
   STATE 7478 [sym__ref; sym_lambda; sym_inherited; sym_exprDot; sym_exprDeref; sym_exprAs;
   sym_exprTpl; sym_exprSubscript; sym_exprCall]; STATE 8019 [sym_exprBinary; sym_exprUnary];
   STATE 7478 [sym_exprParens; sym_exprBrackets; sym__literal; sym_literalString];
   STATE 6664 [sym__literalString; sym_literalChar]; STATE 7478 [sym_literalNumber];
   STATE 7742 [sym__literalInt; sym__literalFloat]; STATE 1380 [sym__ppIf];
   STATE 6327 [sym__ppStatementBlock]; STATE 11840 [aux_sym_labeledStatement_repeat1];
   STATE 863 [aux_sym__statementsTr_repeat1]; STATE 6664 [aux_sym_literalString_repeat1];
   ACTIONS 397 [anon_sym_SEMI]; ACTIONS 399 [anon_sym_LBRACK]; ACTIONS 401 [anon_sym_LPAREN];
   ACTIONS 403 [aux_sym__literalString_token1]; ACTIONS 405 [anon_sym_POUND];
   ACTIONS 407 [aux_sym__literalInt_token1]; ACTIONS 409 [aux_sym__literalInt_token2;
   aux_sym__literalInt_token3]; ACTIONS 407 [aux_sym__literalFloat_token1];
   ACTIONS 411 [aux_sym_ppUsesBlock_token1]; ACTIONS 413 [sym_kAdd; sym_kSub];
   ACTIONS 415 [sym_kAt]; ACTIONS 417 [sym_kTrue; sym_kFalse]; ACTIONS 419 [sym_labelNumber];
   ACTIONS 3 [sym__space]; ACTIONS 5 [sym_ppDirective]; ACTIONS 3 [sym_comment];
   ACTIONS 417 [sym_ppFragmentExpr]; ACTIONS 397 [sym_ppFragmentStmt];
   ACTIONS 403 [sym__literalStringMultiline]; ACTIONS 421 [sym_identifier];
   ACTIONS 423 [sym_kSpecialize]; ACTIONS 427 [sym_kAsm]; ACTIONS 429 [sym_kBegin];
   ACTIONS 431 [sym_kCase]; ACTIONS 433 [sym_kConst]; ACTIONS 1414 [sym_kEnd];
   ACTIONS 437 [sym_kFor]; ACTIONS 439 [sym_kFunction]; ACTIONS 441 [sym_kGoto];
   ACTIONS 443 [sym_kIf]; ACTIONS 445 [sym_kInherited]; ACTIONS 417 [sym_kNil];
   ACTIONS 415 [sym_kNot]; ACTIONS 439 [sym_kProcedure]; ACTIONS 447 [sym_kRaise];
   ACTIONS 449 [sym_kRepeat]; ACTIONS 451 [sym_kString]; ACTIONS 453 [sym_kTry];
   ACTIONS 455 [sym_kVar]; ACTIONS 457 [sym_kWhile]; ACTIONS 459 [sym_kWith]].

(** State 234. *)
Definition ts_parse_table_234 : parse_row :=
  [STATE 6213 [sym_if]; STATE 6327 [sym_ifElse; sym_while; sym_repeat; sym_for; sym_foreach;
   sym_try; sym_case; sym_block; sym_asm; sym_with; sym_raise; sym_statement; sym_goto;
   sym__statement]; STATE 15991 [sym_ifTr; sym_ifElseTr; sym_whileTr; sym_repeatTr; sym_forTr;
   sym_foreachTr; sym_tryTr; sym_caseTr]; STATE 14251 [sym_blockTr]; STATE 15991 [sym_asmTr;
   sym_withTr; sym_raiseTr; sym_statementTr; sym_gotoTr; sym__statementTr];
   STATE 13915 [sym_assignment]; STATE 11785 [sym_varAssignDef]; STATE 13915 [sym_varDef;
   sym_constDef]; STATE 6166 [sym_label]; STATE 15991 [sym__statementsTr];
   STATE 14580 [sym_statementsTr]; STATE 8019 [sym__expr; sym_exprConditional];
   STATE 7478 [sym__ref; sym_lambda; sym_inherited; sym_exprDot; sym_exprDeref; sym_exprAs;
   sym_exprTpl; sym_exprSubscript; sym_exprCall]; STATE 8019 [sym_exprBinary; sym_exprUnary];
   STATE 7478 [sym_exprParens; sym_exprBrackets; sym__literal; sym_literalString];
   STATE 6664 [sym__literalString; sym_literalChar]; STATE 7478 [sym_literalNumber];
   STATE 7742 [sym__literalInt; sym__literalFloat]; STATE 1380 [sym__ppIf];
   STATE 6327 [sym__ppStatementBlock]; STATE 11840 [aux_sym_labeledStatement_repeat1];
   STATE 863 [aux_sym__statementsTr_repeat1]; STATE 6664 [aux_sym_literalString_repeat1];
   ACTIONS 397 [anon_sym_SEMI]; ACTIONS 399 [anon_sym_LBRACK]; ACTIONS 401 [anon_sym_LPAREN];
   ACTIONS 403 [aux_sym__literalString_token1]; ACTIONS 405 [anon_sym_POUND];
   ACTIONS 407 [aux_sym__literalInt_token1]; ACTIONS 409 [aux_sym__literalInt_token2;
   aux_sym__literalInt_token3]; ACTIONS 407 [aux_sym__literalFloat_token1];
   ACTIONS 411 [aux_sym_ppUsesBlock_token1]; ACTIONS 413 [sym_kAdd; sym_kSub];
   ACTIONS 415 [sym_kAt]; ACTIONS 417 [sym_kTrue; sym_kFalse]; ACTIONS 419 [sym_labelNumber];
   ACTIONS 3 [sym__space]; ACTIONS 5 [sym_ppDirective]; ACTIONS 3 [sym_comment];
   ACTIONS 417 [sym_ppFragmentExpr]; ACTIONS 397 [sym_ppFragmentStmt];
   ACTIONS 403 [sym__literalStringMultiline]; ACTIONS 421 [sym_identifier];
   ACTIONS 423 [sym_kSpecialize]; ACTIONS 427 [sym_kAsm]; ACTIONS 429 [sym_kBegin];
   ACTIONS 431 [sym_kCase]; ACTIONS 433 [sym_kConst]; ACTIONS 1416 [sym_kEnd];
   ACTIONS 437 [sym_kFor]; ACTIONS 439 [sym_kFunction]; ACTIONS 441 [sym_kGoto];
   ACTIONS 443 [sym_kIf]; ACTIONS 445 [sym_kInherited]; ACTIONS 417 [sym_kNil];
   ACTIONS 415 [sym_kNot]; ACTIONS 439 [sym_kProcedure]; ACTIONS 447 [sym_kRaise];
   ACTIONS 449 [sym_kRepeat]; ACTIONS 451 [sym_kString]; ACTIONS 453 [sym_kTry];
   ACTIONS 455 [sym_kVar]; ACTIONS 457 [sym_kWhile]; ACTIONS 459 [sym_kWith]].

(** State 235. *)
Definition ts_parse_table_235 : parse_row :=
  [STATE 6213 [sym_if]; STATE 6327 [sym_ifElse; sym_while; sym_repeat; sym_for; sym_foreach;
   sym_try; sym_case; sym_block; sym_asm; sym_with; sym_raise; sym_statement; sym_goto;
   sym__statement]; STATE 14841 [sym_ifTr; sym_ifElseTr; sym_whileTr; sym_repeatTr; sym_forTr;
   sym_foreachTr; sym_tryTr; sym_caseTr]; STATE 14251 [sym_blockTr]; STATE 14841 [sym_asmTr;
   sym_withTr; sym_raiseTr; sym_statementTr; sym_gotoTr; sym__statementTr];
   STATE 13915 [sym_assignment]; STATE 11785 [sym_varAssignDef]; STATE 13915 [sym_varDef;
   sym_constDef]; STATE 6166 [sym_label]; STATE 14841 [sym__statementsTr]; STATE 8019 [sym__expr;
   sym_exprConditional]; STATE 7478 [sym__ref; sym_lambda; sym_inherited; sym_exprDot;
   sym_exprDeref; sym_exprAs; sym_exprTpl; sym_exprSubscript; sym_exprCall];
   STATE 8019 [sym_exprBinary; sym_exprUnary]; STATE 7478 [sym_exprParens; sym_exprBrackets;
   sym__literal; sym_literalString]; STATE 6664 [sym__literalString; sym_literalChar];
   STATE 7478 [sym_literalNumber]; STATE 7742 [sym__literalInt; sym__literalFloat];
   STATE 1380 [sym__ppIf]; STATE 6327 [sym__ppStatementBlock];
   STATE 11840 [aux_sym_labeledStatement_repeat1]; STATE 863 [aux_sym__statementsTr_repeat1];
   STATE 6664 [aux_sym_literalString_repeat1]; ACTIONS 397 [anon_sym_SEMI];
   ACTIONS 1418 [anon_sym_COLON]; ACTIONS 399 [anon_sym_LBRACK]; ACTIONS 401 [anon_sym_LPAREN];
   ACTIONS 403 [aux_sym__literalString_token1]; ACTIONS 405 [anon_sym_POUND];
   ACTIONS 407 [aux_sym__literalInt_token1]; ACTIONS 409 [aux_sym__literalInt_token2;
   aux_sym__literalInt_token3]; ACTIONS 407 [aux_sym__literalFloat_token1];
   ACTIONS 411 [aux_sym_ppUsesBlock_token1]; ACTIONS 413 [sym_kAdd; sym_kSub];
   ACTIONS 415 [sym_kAt]; ACTIONS 417 [sym_kTrue; sym_kFalse]; ACTIONS 419 [sym_labelNumber];
   ACTIONS 3 [sym__space]; ACTIONS 5 [sym_ppDirective]; ACTIONS 3 [sym_comment];
   ACTIONS 417 [sym_ppFragmentExpr]; ACTIONS 397 [sym_ppFragmentStmt];
   ACTIONS 403 [sym__literalStringMultiline]; ACTIONS 421 [sym_identifier];
   ACTIONS 423 [sym_kSpecialize]; ACTIONS 427 [sym_kAsm]; ACTIONS 429 [sym_kBegin];
   ACTIONS 431 [sym_kCase]; ACTIONS 433 [sym_kConst]; ACTIONS 1420 [sym_kEnd];
   ACTIONS 437 [sym_kFor]; ACTIONS 439 [sym_kFunction]; ACTIONS 441 [sym_kGoto];
   ACTIONS 443 [sym_kIf]; ACTIONS 445 [sym_kInherited]; ACTIONS 417 [sym_kNil];
   ACTIONS 415 [sym_kNot]; ACTIONS 439 [sym_kProcedure]; ACTIONS 447 [sym_kRaise];
   ACTIONS 449 [sym_kRepeat]; ACTIONS 451 [sym_kString]; ACTIONS 453 [sym_kTry];
   ACTIONS 455 [sym_kVar]; ACTIONS 457 [sym_kWhile]; ACTIONS 459 [sym_kWith]].

(** State 236. *)
Definition ts_parse_table_236 : parse_row :=
  [STATE 6213 [sym_if]; STATE 6327 [sym_ifElse; sym_while; sym_repeat; sym_for; sym_foreach;
   sym_try; sym_case; sym_block; sym_asm; sym_with; sym_raise; sym_statement; sym_goto;
   sym__statement]; STATE 15938 [sym_ifTr; sym_ifElseTr; sym_whileTr; sym_repeatTr; sym_forTr;
   sym_foreachTr; sym_tryTr; sym_caseTr]; STATE 14251 [sym_blockTr]; STATE 15938 [sym_asmTr;
   sym_withTr; sym_raiseTr; sym_statementTr; sym_gotoTr; sym__statementTr];
   STATE 13915 [sym_assignment]; STATE 11785 [sym_varAssignDef]; STATE 13915 [sym_varDef;
   sym_constDef]; STATE 6166 [sym_label]; STATE 15938 [sym__statementsTr]; STATE 8019 [sym__expr;
   sym_exprConditional]; STATE 7478 [sym__ref; sym_lambda; sym_inherited; sym_exprDot;
   sym_exprDeref; sym_exprAs; sym_exprTpl; sym_exprSubscript; sym_exprCall];
   STATE 8019 [sym_exprBinary; sym_exprUnary]; STATE 7478 [sym_exprParens; sym_exprBrackets;
   sym__literal; sym_literalString]; STATE 6664 [sym__literalString; sym_literalChar];
   STATE 7478 [sym_literalNumber]; STATE 7742 [sym__literalInt; sym__literalFloat];
   STATE 1380 [sym__ppIf]; STATE 6327 [sym__ppStatementBlock];
   STATE 11840 [aux_sym_labeledStatement_repeat1]; STATE 863 [aux_sym__statementsTr_repeat1];
   STATE 6664 [aux_sym_literalString_repeat1]; ACTIONS 397 [anon_sym_SEMI];
   ACTIONS 1422 [anon_sym_COLON]; ACTIONS 399 [anon_sym_LBRACK]; ACTIONS 401 [anon_sym_LPAREN];
   ACTIONS 403 [aux_sym__literalString_token1]; ACTIONS 405 [anon_sym_POUND];
   ACTIONS 407 [aux_sym__literalInt_token1]; ACTIONS 409 [aux_sym__literalInt_token2;
   aux_sym__literalInt_token3]; ACTIONS 407 [aux_sym__literalFloat_token1];
   ACTIONS 411 [aux_sym_ppUsesBlock_token1]; ACTIONS 413 [sym_kAdd; sym_kSub];
   ACTIONS 415 [sym_kAt]; ACTIONS 417 [sym_kTrue; sym_kFalse]; ACTIONS 419 [sym_labelNumber];
   ACTIONS 3 [sym__space]; ACTIONS 5 [sym_ppDirective]; ACTIONS 3 [sym_comment];
   ACTIONS 417 [sym_ppFragmentExpr]; ACTIONS 397 [sym_ppFragmentStmt];
   ACTIONS 403 [sym__literalStringMultiline]; ACTIONS 421 [sym_identifier];
   ACTIONS 423 [sym_kSpecialize]; ACTIONS 427 [sym_kAsm]; ACTIONS 429 [sym_kBegin];
   ACTIONS 431 [sym_kCase]; ACTIONS 433 [sym_kConst]; ACTIONS 1424 [sym_kEnd];
   ACTIONS 437 [sym_kFor]; ACTIONS 439 [sym_kFunction]; ACTIONS 441 [sym_kGoto];
   ACTIONS 443 [sym_kIf]; ACTIONS 445 [sym_kInherited]; ACTIONS 417 [sym_kNil];
   ACTIONS 415 [sym_kNot]; ACTIONS 439 [sym_kProcedure]; ACTIONS 447 [sym_kRaise];
   ACTIONS 449 [sym_kRepeat]; ACTIONS 451 [sym_kString]; ACTIONS 453 [sym_kTry];
   ACTIONS 455 [sym_kVar]; ACTIONS 457 [sym_kWhile]; ACTIONS 459 [sym_kWith]].

(** State 237. *)
Definition ts_parse_table_237 : parse_row :=
  [STATE 6213 [sym_if]; STATE 6327 [sym_ifElse; sym_while; sym_repeat; sym_for; sym_foreach;
   sym_try; sym_case; sym_block; sym_asm; sym_with; sym_raise; sym_statement; sym_goto;
   sym__statement]; STATE 14299 [sym_ifTr; sym_ifElseTr; sym_whileTr; sym_repeatTr; sym_forTr;
   sym_foreachTr; sym_tryTr; sym_caseTr]; STATE 14251 [sym_blockTr]; STATE 14299 [sym_asmTr;
   sym_withTr; sym_raiseTr; sym_statementTr; sym_gotoTr; sym__statementTr];
   STATE 13915 [sym_assignment]; STATE 11785 [sym_varAssignDef]; STATE 13915 [sym_varDef;
   sym_constDef]; STATE 6166 [sym_label]; STATE 14299 [sym__statementsTr]; STATE 8019 [sym__expr;
   sym_exprConditional]; STATE 7478 [sym__ref; sym_lambda; sym_inherited; sym_exprDot;
   sym_exprDeref; sym_exprAs; sym_exprTpl; sym_exprSubscript; sym_exprCall];
   STATE 8019 [sym_exprBinary; sym_exprUnary]; STATE 7478 [sym_exprParens; sym_exprBrackets;
   sym__literal; sym_literalString]; STATE 6664 [sym__literalString; sym_literalChar];
   STATE 7478 [sym_literalNumber]; STATE 7742 [sym__literalInt; sym__literalFloat];
   STATE 1380 [sym__ppIf]; STATE 6327 [sym__ppStatementBlock];
   STATE 11840 [aux_sym_labeledStatement_repeat1]; STATE 863 [aux_sym__statementsTr_repeat1];
   STATE 6664 [aux_sym_literalString_repeat1]; ACTIONS 397 [anon_sym_SEMI];
   ACTIONS 1426 [anon_sym_COLON]; ACTIONS 399 [anon_sym_LBRACK]; ACTIONS 401 [anon_sym_LPAREN];
   ACTIONS 403 [aux_sym__literalString_token1]; ACTIONS 405 [anon_sym_POUND];
   ACTIONS 407 [aux_sym__literalInt_token1]; ACTIONS 409 [aux_sym__literalInt_token2;
   aux_sym__literalInt_token3]; ACTIONS 407 [aux_sym__literalFloat_token1];
   ACTIONS 411 [aux_sym_ppUsesBlock_token1]; ACTIONS 413 [sym_kAdd; sym_kSub];
   ACTIONS 415 [sym_kAt]; ACTIONS 417 [sym_kTrue; sym_kFalse]; ACTIONS 419 [sym_labelNumber];
   ACTIONS 3 [sym__space]; ACTIONS 5 [sym_ppDirective]; ACTIONS 3 [sym_comment];
   ACTIONS 417 [sym_ppFragmentExpr]; ACTIONS 397 [sym_ppFragmentStmt];
   ACTIONS 403 [sym__literalStringMultiline]; ACTIONS 421 [sym_identifier];
   ACTIONS 423 [sym_kSpecialize]; ACTIONS 427 [sym_kAsm]; ACTIONS 429 [sym_kBegin];
   ACTIONS 431 [sym_kCase]; ACTIONS 433 [sym_kConst]; ACTIONS 1428 [sym_kEnd];
   ACTIONS 437 [sym_kFor]; ACTIONS 439 [sym_kFunction]; ACTIONS 441 [sym_kGoto];
   ACTIONS 443 [sym_kIf]; ACTIONS 445 [sym_kInherited]; ACTIONS 417 [sym_kNil];
   ACTIONS 415 [sym_kNot]; ACTIONS 439 [sym_kProcedure]; ACTIONS 447 [sym_kRaise];
   ACTIONS 449 [sym_kRepeat]; ACTIONS 451 [sym_kString]; ACTIONS 453 [sym_kTry];
   ACTIONS 455 [sym_kVar]; ACTIONS 457 [sym_kWhile]; ACTIONS 459 [sym_kWith]].

(** State 238. *)
Definition ts_parse_table_238 : parse_row :=
  [STATE 6213 [sym_if]; STATE 6327 [sym_ifElse; sym_while; sym_repeat; sym_for; sym_foreach;
   sym_try; sym_case; sym_block; sym_asm; sym_with; sym_raise; sym_statement; sym_goto;
   sym__statement]; STATE 15991 [sym_ifTr; sym_ifElseTr; sym_whileTr; sym_repeatTr; sym_forTr;
   sym_foreachTr; sym_tryTr; sym_caseTr]; STATE 14251 [sym_blockTr]; STATE 15991 [sym_asmTr;
   sym_withTr; sym_raiseTr; sym_statementTr; sym_gotoTr; sym__statementTr];
   STATE 13915 [sym_assignment]; STATE 11785 [sym_varAssignDef]; STATE 13915 [sym_varDef;
   sym_constDef]; STATE 6166 [sym_label]; STATE 15991 [sym__statementsTr];
   STATE 14204 [sym_statementsTr]; STATE 8019 [sym__expr; sym_exprConditional];
   STATE 7478 [sym__ref; sym_lambda; sym_inherited; sym_exprDot; sym_exprDeref; sym_exprAs;
   sym_exprTpl; sym_exprSubscript; sym_exprCall]; STATE 8019 [sym_exprBinary; sym_exprUnary];
   STATE 7478 [sym_exprParens; sym_exprBrackets; sym__literal; sym_literalString];
   STATE 6664 [sym__literalString; sym_literalChar]; STATE 7478 [sym_literalNumber];
   STATE 7742 [sym__literalInt; sym__literalFloat]; STATE 1380 [sym__ppIf];
   STATE 6327 [sym__ppStatementBlock]; STATE 11840 [aux_sym_labeledStatement_repeat1];
   STATE 863 [aux_sym__statementsTr_repeat1]; STATE 6664 [aux_sym_literalString_repeat1];
   ACTIONS 397 [anon_sym_SEMI]; ACTIONS 399 [anon_sym_LBRACK]; ACTIONS 401 [anon_sym_LPAREN];
   ACTIONS 403 [aux_sym__literalString_token1]; ACTIONS 405 [anon_sym_POUND];
   ACTIONS 407 [aux_sym__literalInt_token1]; ACTIONS 409 [aux_sym__literalInt_token2;
   aux_sym__literalInt_token3]; ACTIONS 407 [aux_sym__literalFloat_token1];
   ACTIONS 411 [aux_sym_ppUsesBlock_token1]; ACTIONS 413 [sym_kAdd; sym_kSub];
   ACTIONS 415 [sym_kAt]; ACTIONS 417 [sym_kTrue; sym_kFalse]; ACTIONS 419 [sym_labelNumber];
   ACTIONS 3 [sym__space]; ACTIONS 5 [sym_ppDirective]; ACTIONS 3 [sym_comment];
   ACTIONS 417 [sym_ppFragmentExpr]; ACTIONS 397 [sym_ppFragmentStmt];
   ACTIONS 403 [sym__literalStringMultiline]; ACTIONS 421 [sym_identifier];
   ACTIONS 423 [sym_kSpecialize]; ACTIONS 427 [sym_kAsm]; ACTIONS 429 [sym_kBegin];
   ACTIONS 431 [sym_kCase]; ACTIONS 433 [sym_kConst]; ACTIONS 1430 [sym_kEnd];
   ACTIONS 437 [sym_kFor]; ACTIONS 439 [sym_kFunction]; ACTIONS 441 [sym_kGoto];
   ACTIONS 443 [sym_kIf]; ACTIONS 445 [sym_kInherited]; ACTIONS 417 [sym_kNil];
   ACTIONS 415 [sym_kNot]; ACTIONS 439 [sym_kProcedure]; ACTIONS 447 [sym_kRaise];
   ACTIONS 449 [sym_kRepeat]; ACTIONS 451 [sym_kString]; ACTIONS 453 [sym_kTry];
   ACTIONS 455 [sym_kVar]; ACTIONS 457 [sym_kWhile]; ACTIONS 459 [sym_kWith]].

(** State 239. *)
Definition ts_parse_table_239 : parse_row :=
  [STATE 2899 [sym__ppIf]; STATE 996 [sym__procAttributeNoExt];
   STATE 1005 [sym__procAttributesPp]; STATE 15262 [sym_procAttribute];
   STATE 183 [aux_sym__declProc_repeat1]; ACTIONS 1432 [anon_sym_SEMI; anon_sym_COMMA];
   ACTIONS 1434 [anon_sym_LBRACK]; ACTIONS 1437 [anon_sym_LPAREN];
   ACTIONS 1432 [aux_sym__literalString_token1; anon_sym_POUND];
   ACTIONS 1437 [aux_sym__literalInt_token1]; ACTIONS 1432 [aux_sym__literalInt_token2;
   aux_sym__literalInt_token3]; ACTIONS 1437 [aux_sym__literalFloat_token1];
   ACTIONS 1439 [aux_sym_ppUsesBlock_token1]; ACTIONS 1432 [aux_sym_ppUsesBlock_token2;
   aux_sym_ppUsesBlock_token3]; ACTIONS 1437 [sym_kAdd; sym_kSub]; ACTIONS 1432 [sym_kAt;
   sym_kTrue; sym_kFalse]; ACTIONS 3 [sym__space]; ACTIONS 5 [sym_ppDirective];
   ACTIONS 3 [sym_comment]; ACTIONS 1432 [sym_ppFragmentExpr; sym__literalStringMultiline;
   sym_identifier]; ACTIONS 1442 [sym_kDefault; sym_kNodefault]; ACTIONS 1445 [sym_kDispId];
   ACTIONS 1432 [sym_kGeneric; sym_kSpecialize; sym_kOperator]; ACTIONS 1448 [sym_kPublic];
   ACTIONS 1432 [sym_kForward]; ACTIONS 1442 [sym_kStatic; sym_kVirtual; sym_kAbstract;
   sym_kDynamic; sym_kOverride; sym_kOverload; sym_kReintroduce; sym_kStdcall; sym_kCdecl;
   sym_kCppdecl; sym_kPascal; sym_kRegister; sym_kMwpascal]; ACTIONS 1432 [sym_kExternal];
   ACTIONS 1451 [sym_kMessage]; ACTIONS 1454 [sym_kDeprecated]; ACTIONS 1442 [sym_kExperimental;
   sym_kPlatform; sym_kUnimplemented; sym_kCvar]; ACTIONS 1457 [sym_kExport];
   ACTIONS 1442 [sym_kFar; sym_kNear; sym_kSafecall; sym_kAssembler; sym_kNostackframe;
   sym_kInterrupt; sym_kNoreturn; sym_kIocheck; sym_kLocal; sym_kHardfloat; sym_kSoftfloat;
   sym_kMs_abi_default; sym_kMs_abi_cdecl; sym_kSaveregisters; sym_kSysv_abi_default;
   sym_kSysv_abi_cdecl; sym_kVectorcall; sym_kVarargs; sym_kWinapi]; ACTIONS 1460 [sym_kAlias];
   ACTIONS 1432 [sym_kAsm; sym_kBegin; sym_kCase; sym_kClass; sym_kConst; sym_kConstructor;
   sym_kDestructor; sym_kExports; sym_kFor; sym_kFunction; sym_kGoto; sym_kIf; sym_kInherited];
   ACTIONS 1016 [sym_kInline]; ACTIONS 1432 [sym_kLabel; sym_kNil; sym_kNot; sym_kProcedure;
   sym_kProperty; sym_kRaise; sym_kRepeat; sym_kResourcestring; sym_kString; sym_kThreadvar;
   sym_kTry; sym_kType; sym_kUses; sym_kVar; sym_kWhile; sym_kWith]].

(** State 240. *)
Definition ts_parse_table_240 : parse_row :=
  [STATE 6213 [sym_if]; STATE 6327 [sym_ifElse; sym_while; sym_repeat; sym_for; sym_foreach;
   sym_try; sym_case; sym_block; sym_asm; sym_with; sym_raise; sym_statement; sym_goto;
   sym__statement]; STATE 15991 [sym_ifTr; sym_ifElseTr; sym_whileTr; sym_repeatTr; sym_forTr;
   sym_foreachTr; sym_tryTr; sym_caseTr]; STATE 14251 [sym_blockTr]; STATE 15991 [sym_asmTr;
   sym_withTr; sym_raiseTr; sym_statementTr; sym_gotoTr; sym__statementTr];
   STATE 13915 [sym_assignment]; STATE 11785 [sym_varAssignDef]; STATE 13915 [sym_varDef;
   sym_constDef]; STATE 6166 [sym_label]; STATE 15991 [sym__statementsTr];
   STATE 15183 [sym_statementsTr]; STATE 8019 [sym__expr; sym_exprConditional];
   STATE 7478 [sym__ref; sym_lambda; sym_inherited; sym_exprDot; sym_exprDeref; sym_exprAs;
   sym_exprTpl; sym_exprSubscript; sym_exprCall]; STATE 8019 [sym_exprBinary; sym_exprUnary];
   STATE 7478 [sym_exprParens; sym_exprBrackets; sym__literal; sym_literalString];
   STATE 6664 [sym__literalString; sym_literalChar]; STATE 7478 [sym_literalNumber];
   STATE 7742 [sym__literalInt; sym__literalFloat]; STATE 1380 [sym__ppIf];
   STATE 6327 [sym__ppStatementBlock]; STATE 11840 [aux_sym_labeledStatement_repeat1];
   STATE 863 [aux_sym__statementsTr_repeat1]; STATE 6664 [aux_sym_literalString_repeat1];
   ACTIONS 397 [anon_sym_SEMI]; ACTIONS 399 [anon_sym_LBRACK]; ACTIONS 401 [anon_sym_LPAREN];
   ACTIONS 403 [aux_sym__literalString_token1]; ACTIONS 405 [anon_sym_POUND];
   ACTIONS 407 [aux_sym__literalInt_token1]; ACTIONS 409 [aux_sym__literalInt_token2;
   aux_sym__literalInt_token3]; ACTIONS 407 [aux_sym__literalFloat_token1];
   ACTIONS 411 [aux_sym_ppUsesBlock_token1]; ACTIONS 413 [sym_kAdd; sym_kSub];
   ACTIONS 415 [sym_kAt]; ACTIONS 417 [sym_kTrue; sym_kFalse]; ACTIONS 419 [sym_labelNumber];
   ACTIONS 3 [sym__space]; ACTIONS 5 [sym_ppDirective]; ACTIONS 3 [sym_comment];
   ACTIONS 417 [sym_ppFragmentExpr]; ACTIONS 397 [sym_ppFragmentStmt];
   ACTIONS 403 [sym__literalStringMultiline]; ACTIONS 421 [sym_identifier];
   ACTIONS 423 [sym_kSpecialize]; ACTIONS 427 [sym_kAsm]; ACTIONS 429 [sym_kBegin];
   ACTIONS 431 [sym_kCase]; ACTIONS 433 [sym_kConst]; ACTIONS 1463 [sym_kEnd];
   ACTIONS 437 [sym_kFor]; ACTIONS 439 [sym_kFunction]; ACTIONS 441 [sym_kGoto];
   ACTIONS 443 [sym_kIf]; ACTIONS 445 [sym_kInherited]; ACTIONS 417 [sym_kNil];
   ACTIONS 415 [sym_kNot]; ACTIONS 439 [sym_kProcedure]; ACTIONS 447 [sym_kRaise];
   ACTIONS 449 [sym_kRepeat]; ACTIONS 451 [sym_kString]; ACTIONS 453 [sym_kTry];
   ACTIONS 455 [sym_kVar]; ACTIONS 457 [sym_kWhile]; ACTIONS 459 [sym_kWith]].

(** State 241. *)
Definition ts_parse_table_241 : parse_row :=
  [STATE 6213 [sym_if]; STATE 6327 [sym_ifElse; sym_while; sym_repeat; sym_for; sym_foreach;
   sym_try; sym_case; sym_block; sym_asm; sym_with; sym_raise; sym_statement; sym_goto;
   sym__statement]; STATE 15481 [sym_ifTr; sym_ifElseTr; sym_whileTr; sym_repeatTr; sym_forTr;
   sym_foreachTr; sym_tryTr; sym_caseTr]; STATE 14251 [sym_blockTr]; STATE 15481 [sym_asmTr;
   sym_withTr; sym_raiseTr; sym_statementTr; sym_gotoTr; sym__statementTr];
   STATE 13915 [sym_assignment]; STATE 11785 [sym_varAssignDef]; STATE 13915 [sym_varDef;
   sym_constDef]; STATE 6166 [sym_label]; STATE 15481 [sym__statementsTr]; STATE 8019 [sym__expr;
   sym_exprConditional]; STATE 7478 [sym__ref; sym_lambda; sym_inherited; sym_exprDot;
   sym_exprDeref; sym_exprAs; sym_exprTpl; sym_exprSubscript; sym_exprCall];
   STATE 8019 [sym_exprBinary; sym_exprUnary]; STATE 7478 [sym_exprParens; sym_exprBrackets;
   sym__literal; sym_literalString]; STATE 6664 [sym__literalString; sym_literalChar];
   STATE 7478 [sym_literalNumber]; STATE 7742 [sym__literalInt; sym__literalFloat];
   STATE 1380 [sym__ppIf]; STATE 6327 [sym__ppStatementBlock];
   STATE 11840 [aux_sym_labeledStatement_repeat1]; STATE 863 [aux_sym__statementsTr_repeat1];
   STATE 6664 [aux_sym_literalString_repeat1]; ACTIONS 397 [anon_sym_SEMI];
   ACTIONS 1465 [anon_sym_COLON]; ACTIONS 399 [anon_sym_LBRACK]; ACTIONS 401 [anon_sym_LPAREN];
   ACTIONS 403 [aux_sym__literalString_token1]; ACTIONS 405 [anon_sym_POUND];
   ACTIONS 407 [aux_sym__literalInt_token1]; ACTIONS 409 [aux_sym__literalInt_token2;
   aux_sym__literalInt_token3]; ACTIONS 407 [aux_sym__literalFloat_token1];
   ACTIONS 411 [aux_sym_ppUsesBlock_token1]; ACTIONS 413 [sym_kAdd; sym_kSub];
   ACTIONS 415 [sym_kAt]; ACTIONS 417 [sym_kTrue; sym_kFalse]; ACTIONS 419 [sym_labelNumber];
   ACTIONS 3 [sym__space]; ACTIONS 5 [sym_ppDirective]; ACTIONS 3 [sym_comment];
   ACTIONS 417 [sym_ppFragmentExpr]; ACTIONS 397 [sym_ppFragmentStmt];
   ACTIONS 403 [sym__literalStringMultiline]; ACTIONS 421 [sym_identifier];
   ACTIONS 423 [sym_kSpecialize]; ACTIONS 427 [sym_kAsm]; ACTIONS 429 [sym_kBegin];
   ACTIONS 431 [sym_kCase]; ACTIONS 433 [sym_kConst]; ACTIONS 1467 [sym_kEnd];
   ACTIONS 437 [sym_kFor]; ACTIONS 439 [sym_kFunction]; ACTIONS 441 [sym_kGoto];
   ACTIONS 443 [sym_kIf]; ACTIONS 445 [sym_kInherited]; ACTIONS 417 [sym_kNil];
   ACTIONS 415 [sym_kNot]; ACTIONS 439 [sym_kProcedure]; ACTIONS 447 [sym_kRaise];
   ACTIONS 449 [sym_kRepeat]; ACTIONS 451 [sym_kString]; ACTIONS 453 [sym_kTry];
   ACTIONS 455 [sym_kVar]; ACTIONS 457 [sym_kWhile]; ACTIONS 459 [sym_kWith]].

(** State 242. *)
Definition ts_parse_table_242 : parse_row :=
  [STATE 6213 [sym_if]; STATE 6327 [sym_ifElse; sym_while; sym_repeat; sym_for; sym_foreach;
   sym_try; sym_case; sym_block; sym_asm; sym_with; sym_raise; sym_statement; sym_goto;
   sym__statement]; STATE 15742 [sym_ifTr; sym_ifElseTr; sym_whileTr; sym_repeatTr; sym_forTr;
   sym_foreachTr; sym_tryTr; sym_caseTr]; STATE 14251 [sym_blockTr]; STATE 15742 [sym_asmTr;
   sym_withTr; sym_raiseTr; sym_statementTr; sym_gotoTr; sym__statementTr];
   STATE 13915 [sym_assignment]; STATE 11785 [sym_varAssignDef]; STATE 13915 [sym_varDef;
   sym_constDef]; STATE 6166 [sym_label]; STATE 15742 [sym__statementsTr]; STATE 8019 [sym__expr;
   sym_exprConditional]; STATE 7478 [sym__ref; sym_lambda; sym_inherited; sym_exprDot;
   sym_exprDeref; sym_exprAs; sym_exprTpl; sym_exprSubscript; sym_exprCall];
   STATE 8019 [sym_exprBinary; sym_exprUnary]; STATE 7478 [sym_exprParens; sym_exprBrackets;
   sym__literal; sym_literalString]; STATE 6664 [sym__literalString; sym_literalChar];
   STATE 7478 [sym_literalNumber]; STATE 7742 [sym__literalInt; sym__literalFloat];
   STATE 1380 [sym__ppIf]; STATE 6327 [sym__ppStatementBlock];
   STATE 11840 [aux_sym_labeledStatement_repeat1]; STATE 863 [aux_sym__statementsTr_repeat1];
   STATE 6664 [aux_sym_literalString_repeat1]; ACTIONS 397 [anon_sym_SEMI];
   ACTIONS 1469 [anon_sym_COLON]; ACTIONS 399 [anon_sym_LBRACK]; ACTIONS 401 [anon_sym_LPAREN];
   ACTIONS 403 [aux_sym__literalString_token1]; ACTIONS 405 [anon_sym_POUND];
   ACTIONS 407 [aux_sym__literalInt_token1]; ACTIONS 409 [aux_sym__literalInt_token2;
   aux_sym__literalInt_token3]; ACTIONS 407 [aux_sym__literalFloat_token1];
   ACTIONS 411 [aux_sym_ppUsesBlock_token1]; ACTIONS 413 [sym_kAdd; sym_kSub];
   ACTIONS 415 [sym_kAt]; ACTIONS 417 [sym_kTrue; sym_kFalse]; ACTIONS 419 [sym_labelNumber];
   ACTIONS 3 [sym__space]; ACTIONS 5 [sym_ppDirective]; ACTIONS 3 [sym_comment];
   ACTIONS 417 [sym_ppFragmentExpr]; ACTIONS 397 [sym_ppFragmentStmt];
   ACTIONS 403 [sym__literalStringMultiline]; ACTIONS 421 [sym_identifier];
   ACTIONS 423 [sym_kSpecialize]; ACTIONS 427 [sym_kAsm]; ACTIONS 429 [sym_kBegin];
   ACTIONS 431 [sym_kCase]; ACTIONS 433 [sym_kConst]; ACTIONS 1471 [sym_kEnd];
   ACTIONS 437 [sym_kFor]; ACTIONS 439 [sym_kFunction]; ACTIONS 441 [sym_kGoto];
   ACTIONS 443 [sym_kIf]; ACTIONS 445 [sym_kInherited]; ACTIONS 417 [sym_kNil];
   ACTIONS 415 [sym_kNot]; ACTIONS 439 [sym_kProcedure]; ACTIONS 447 [sym_kRaise];
   ACTIONS 449 [sym_kRepeat]; ACTIONS 451 [sym_kString]; ACTIONS 453 [sym_kTry];
   ACTIONS 455 [sym_kVar]; ACTIONS 457 [sym_kWhile]; ACTIONS 459 [sym_kWith]].

(** State 243. *)
Definition ts_parse_table_243 : parse_row :=
  [STATE 6213 [sym_if]; STATE 6327 [sym_ifElse; sym_while; sym_repeat; sym_for; sym_foreach;
   sym_try; sym_case; sym_block; sym_asm; sym_with; sym_raise; sym_statement; sym_goto;
   sym__statement]; STATE 15940 [sym_ifTr; sym_ifElseTr; sym_whileTr; sym_repeatTr; sym_forTr;
   sym_foreachTr; sym_tryTr; sym_caseTr]; STATE 14251 [sym_blockTr]; STATE 15940 [sym_asmTr;
   sym_withTr; sym_raiseTr; sym_statementTr; sym_gotoTr; sym__statementTr];
   STATE 13915 [sym_assignment]; STATE 11785 [sym_varAssignDef]; STATE 13915 [sym_varDef;
   sym_constDef]; STATE 6166 [sym_label]; STATE 15940 [sym__statementsTr]; STATE 8019 [sym__expr;
   sym_exprConditional]; STATE 7478 [sym__ref; sym_lambda; sym_inherited; sym_exprDot;
   sym_exprDeref; sym_exprAs; sym_exprTpl; sym_exprSubscript; sym_exprCall];
   STATE 8019 [sym_exprBinary; sym_exprUnary]; STATE 7478 [sym_exprParens; sym_exprBrackets;
   sym__literal; sym_literalString]; STATE 6664 [sym__literalString; sym_literalChar];
   STATE 7478 [sym_literalNumber]; STATE 7742 [sym__literalInt; sym__literalFloat];
   STATE 1380 [sym__ppIf]; STATE 6327 [sym__ppStatementBlock];
   STATE 11840 [aux_sym_labeledStatement_repeat1]; STATE 863 [aux_sym__statementsTr_repeat1];
   STATE 6664 [aux_sym_literalString_repeat1]; ACTIONS 397 [anon_sym_SEMI];
   ACTIONS 1473 [anon_sym_COLON]; ACTIONS 399 [anon_sym_LBRACK]; ACTIONS 401 [anon_sym_LPAREN];
   ACTIONS 403 [aux_sym__literalString_token1]; ACTIONS 405 [anon_sym_POUND];
   ACTIONS 407 [aux_sym__literalInt_token1]; ACTIONS 409 [aux_sym__literalInt_token2;
   aux_sym__literalInt_token3]; ACTIONS 407 [aux_sym__literalFloat_token1];
   ACTIONS 411 [aux_sym_ppUsesBlock_token1]; ACTIONS 413 [sym_kAdd; sym_kSub];
   ACTIONS 415 [sym_kAt]; ACTIONS 417 [sym_kTrue; sym_kFalse]; ACTIONS 419 [sym_labelNumber];
   ACTIONS 3 [sym__space]; ACTIONS 5 [sym_ppDirective]; ACTIONS 3 [sym_comment];
   ACTIONS 417 [sym_ppFragmentExpr]; ACTIONS 397 [sym_ppFragmentStmt];
   ACTIONS 403 [sym__literalStringMultiline]; ACTIONS 421 [sym_identifier];
   ACTIONS 423 [sym_kSpecialize]; ACTIONS 427 [sym_kAsm]; ACTIONS 429 [sym_kBegin];
   ACTIONS 431 [sym_kCase]; ACTIONS 433 [sym_kConst]; ACTIONS 1475 [sym_kEnd];
   ACTIONS 437 [sym_kFor]; ACTIONS 439 [sym_kFunction]; ACTIONS 441 [sym_kGoto];
   ACTIONS 443 [sym_kIf]; ACTIONS 445 [sym_kInherited]; ACTIONS 417 [sym_kNil];
   ACTIONS 415 [sym_kNot]; ACTIONS 439 [sym_kProcedure]; ACTIONS 447 [sym_kRaise];
   ACTIONS 449 [sym_kRepeat]; ACTIONS 451 [sym_kString]; ACTIONS 453 [sym_kTry];
   ACTIONS 455 [sym_kVar]; ACTIONS 457 [sym_kWhile]; ACTIONS 459 [sym_kWith]].

(** State 244. *)
Definition ts_parse_table_244 : parse_row :=
  [STATE 2899 [sym__ppIf]; STATE 996 [sym__procAttributeNoExt];
   STATE 1005 [sym__procAttributesPp]; STATE 15262 [sym_procAttribute];
   STATE 271 [aux_sym__declProc_repeat1]; ACTIONS 1477 [anon_sym_SEMI; anon_sym_COMMA];
   ACTIONS 1479 [anon_sym_LBRACK]; ACTIONS 1482 [anon_sym_LPAREN];
   ACTIONS 1477 [aux_sym__literalString_token1; anon_sym_POUND];
   ACTIONS 1482 [aux_sym__literalInt_token1]; ACTIONS 1477 [aux_sym__literalInt_token2;
   aux_sym__literalInt_token3]; ACTIONS 1482 [aux_sym__literalFloat_token1];
   ACTIONS 1484 [aux_sym_ppUsesBlock_token1]; ACTIONS 1477 [aux_sym_ppUsesBlock_token2;
   aux_sym_ppUsesBlock_token3]; ACTIONS 1482 [sym_kAdd; sym_kSub]; ACTIONS 1477 [sym_kAt;
   sym_kTrue; sym_kFalse]; ACTIONS 3 [sym__space]; ACTIONS 5 [sym_ppDirective];
   ACTIONS 3 [sym_comment]; ACTIONS 1477 [sym_ppFragmentExpr; sym__literalStringMultiline;
   sym_identifier]; ACTIONS 1487 [sym_kDefault; sym_kNodefault]; ACTIONS 1490 [sym_kDispId];
   ACTIONS 1477 [sym_kGeneric; sym_kSpecialize; sym_kOperator]; ACTIONS 1493 [sym_kPublic];
   ACTIONS 1477 [sym_kForward]; ACTIONS 1487 [sym_kStatic; sym_kVirtual; sym_kAbstract;
   sym_kDynamic; sym_kOverride; sym_kOverload; sym_kReintroduce; sym_kStdcall; sym_kCdecl;
   sym_kCppdecl; sym_kPascal; sym_kRegister; sym_kMwpascal]; ACTIONS 1477 [sym_kExternal];
   ACTIONS 1496 [sym_kMessage]; ACTIONS 1499 [sym_kDeprecated]; ACTIONS 1487 [sym_kExperimental;
   sym_kPlatform; sym_kUnimplemented; sym_kCvar]; ACTIONS 1502 [sym_kExport];
   ACTIONS 1487 [sym_kFar; sym_kNear; sym_kSafecall; sym_kAssembler; sym_kNostackframe;
   sym_kInterrupt; sym_kNoreturn; sym_kIocheck; sym_kLocal; sym_kHardfloat; sym_kSoftfloat;
   sym_kMs_abi_default; sym_kMs_abi_cdecl; sym_kSaveregisters; sym_kSysv_abi_default;
   sym_kSysv_abi_cdecl; sym_kVectorcall; sym_kVarargs; sym_kWinapi]; ACTIONS 1505 [sym_kAlias];
   ACTIONS 1477 [sym_kAsm; sym_kBegin; sym_kCase; sym_kClass; sym_kConst; sym_kConstructor;
   sym_kDestructor; sym_kExports; sym_kFor; sym_kFunction; sym_kGoto; sym_kIf; sym_kInherited];
   ACTIONS 1016 [sym_kInline]; ACTIONS 1477 [sym_kLabel; sym_kNil; sym_kNot; sym_kProcedure;
   sym_kProperty; sym_kRaise; sym_kRepeat; sym_kResourcestring; sym_kString; sym_kThreadvar;
   sym_kTry; sym_kType; sym_kUses; sym_kVar; sym_kWhile; sym_kWith]].

(** State 245. *)
Definition ts_parse_table_245 : parse_row :=
  [STATE 2899 [sym__ppIf]; STATE 996 [sym__procAttributeNoExt];
   STATE 1005 [sym__procAttributesPp]; STATE 15262 [sym_procAttribute];
   STATE 273 [aux_sym__declProc_repeat1]; ACTIONS 1508 [anon_sym_SEMI; anon_sym_COMMA];
   ACTIONS 1510 [anon_sym_LBRACK]; ACTIONS 1513 [anon_sym_LPAREN];
   ACTIONS 1508 [aux_sym__literalString_token1; anon_sym_POUND];
   ACTIONS 1513 [aux_sym__literalInt_token1]; ACTIONS 1508 [aux_sym__literalInt_token2;
   aux_sym__literalInt_token3]; ACTIONS 1513 [aux_sym__literalFloat_token1];
   ACTIONS 1515 [aux_sym_ppUsesBlock_token1]; ACTIONS 1508 [aux_sym_ppUsesBlock_token2;
   aux_sym_ppUsesBlock_token3]; ACTIONS 1513 [sym_kAdd; sym_kSub]; ACTIONS 1508 [sym_kAt;
   sym_kTrue; sym_kFalse]; ACTIONS 3 [sym__space]; ACTIONS 5 [sym_ppDirective];
   ACTIONS 3 [sym_comment]; ACTIONS 1508 [sym_ppFragmentExpr; sym__literalStringMultiline;
   sym_identifier]; ACTIONS 1518 [sym_kDefault; sym_kNodefault]; ACTIONS 1521 [sym_kDispId];
   ACTIONS 1508 [sym_kGeneric; sym_kSpecialize; sym_kOperator]; ACTIONS 1524 [sym_kPublic];
   ACTIONS 1508 [sym_kForward]; ACTIONS 1518 [sym_kStatic; sym_kVirtual; sym_kAbstract;
   sym_kDynamic; sym_kOverride; sym_kOverload; sym_kReintroduce; sym_kStdcall; sym_kCdecl;
   sym_kCppdecl; sym_kPascal; sym_kRegister; sym_kMwpascal]; ACTIONS 1508 [sym_kExternal];
   ACTIONS 1527 [sym_kMessage]; ACTIONS 1530 [sym_kDeprecated]; ACTIONS 1518 [sym_kExperimental;
   sym_kPlatform; sym_kUnimplemented; sym_kCvar]; ACTIONS 1533 [sym_kExport];
   ACTIONS 1518 [sym_kFar; sym_kNear; sym_kSafecall; sym_kAssembler; sym_kNostackframe;
   sym_kInterrupt; sym_kNoreturn; sym_kIocheck; sym_kLocal; sym_kHardfloat; sym_kSoftfloat;
   sym_kMs_abi_default; sym_kMs_abi_cdecl; sym_kSaveregisters; sym_kSysv_abi_default;
   sym_kSysv_abi_cdecl; sym_kVectorcall; sym_kVarargs; sym_kWinapi]; ACTIONS 1536 [sym_kAlias];
   ACTIONS 1508 [sym_kAsm; sym_kBegin; sym_kCase; sym_kClass; sym_kConst; sym_kConstructor;
   sym_kDestructor; sym_kExports; sym_kFor; sym_kFunction; sym_kGoto; sym_kIf; sym_kInherited];
   ACTIONS 1016 [sym_kInline]; ACTIONS 1508 [sym_kLabel; sym_kNil; sym_kNot; sym_kProcedure;
   sym_kProperty; sym_kRaise; sym_kRepeat; sym_kResourcestring; sym_kString; sym_kThreadvar;
   sym_kTry; sym_kType; sym_kUses; sym_kVar; sym_kWhile; sym_kWith]].

(** State 246. *)
Definition ts_parse_table_246 : parse_row :=
  [STATE 2899 [sym__ppIf]; STATE 996 [sym__procAttributeNoExt];
   STATE 1005 [sym__procAttributesPp]; STATE 15262 [sym_procAttribute];
   STATE 284 [aux_sym__declProc_repeat1]; ACTIONS 1539 [anon_sym_SEMI; anon_sym_COMMA];
   ACTIONS 1541 [anon_sym_LBRACK]; ACTIONS 1544 [anon_sym_LPAREN];
   ACTIONS 1539 [aux_sym__literalString_token1; anon_sym_POUND];
   ACTIONS 1544 [aux_sym__literalInt_token1]; ACTIONS 1539 [aux_sym__literalInt_token2;
   aux_sym__literalInt_token3]; ACTIONS 1544 [aux_sym__literalFloat_token1];
   ACTIONS 1546 [aux_sym_ppUsesBlock_token1]; ACTIONS 1539 [aux_sym_ppUsesBlock_token2;
   aux_sym_ppUsesBlock_token3]; ACTIONS 1544 [sym_kAdd; sym_kSub]; ACTIONS 1539 [sym_kAt;
   sym_kTrue; sym_kFalse]; ACTIONS 3 [sym__space]; ACTIONS 5 [sym_ppDirective];
   ACTIONS 3 [sym_comment]; ACTIONS 1539 [sym_ppFragmentExpr; sym__literalStringMultiline;
   sym_identifier]; ACTIONS 1549 [sym_kDefault; sym_kNodefault]; ACTIONS 1552 [sym_kDispId];
   ACTIONS 1539 [sym_kGeneric; sym_kSpecialize; sym_kOperator]; ACTIONS 1555 [sym_kPublic];
   ACTIONS 1539 [sym_kForward]; ACTIONS 1549 [sym_kStatic; sym_kVirtual; sym_kAbstract;
   sym_kDynamic; sym_kOverride; sym_kOverload; sym_kReintroduce; sym_kStdcall; sym_kCdecl;
   sym_kCppdecl; sym_kPascal; sym_kRegister; sym_kMwpascal]; ACTIONS 1539 [sym_kExternal];
   ACTIONS 1558 [sym_kMessage]; ACTIONS 1561 [sym_kDeprecated]; ACTIONS 1549 [sym_kExperimental;
   sym_kPlatform; sym_kUnimplemented; sym_kCvar]; ACTIONS 1564 [sym_kExport];
   ACTIONS 1549 [sym_kFar; sym_kNear; sym_kSafecall; sym_kAssembler; sym_kNostackframe;
   sym_kInterrupt; sym_kNoreturn; sym_kIocheck; sym_kLocal; sym_kHardfloat; sym_kSoftfloat;
   sym_kMs_abi_default; sym_kMs_abi_cdecl; sym_kSaveregisters; sym_kSysv_abi_default;
   sym_kSysv_abi_cdecl; sym_kVectorcall; sym_kVarargs; sym_kWinapi]; ACTIONS 1567 [sym_kAlias];
   ACTIONS 1539 [sym_kAsm; sym_kBegin; sym_kCase; sym_kClass; sym_kConst; sym_kConstructor;
   sym_kDestructor; sym_kExports; sym_kFor; sym_kFunction; sym_kGoto; sym_kIf; sym_kInherited];
   ACTIONS 1016 [sym_kInline]; ACTIONS 1539 [sym_kLabel; sym_kNil; sym_kNot; sym_kProcedure;
   sym_kProperty; sym_kRaise; sym_kRepeat; sym_kResourcestring; sym_kString; sym_kThreadvar;
   sym_kTry; sym_kType; sym_kUses; sym_kVar; sym_kWhile; sym_kWith]].

(** State 247. *)
Definition ts_parse_table_247 : parse_row :=
  [STATE 6213 [sym_if]; STATE 6327 [sym_ifElse; sym_while; sym_repeat; sym_for; sym_foreach;
   sym_try; sym_case; sym_block; sym_asm; sym_with; sym_raise; sym_statement; sym_goto;
   sym__statement]; STATE 15991 [sym_ifTr; sym_ifElseTr; sym_whileTr; sym_repeatTr; sym_forTr;
   sym_foreachTr; sym_tryTr; sym_caseTr]; STATE 14251 [sym_blockTr]; STATE 15991 [sym_asmTr;
   sym_withTr; sym_raiseTr; sym_statementTr; sym_gotoTr; sym__statementTr];
   STATE 13915 [sym_assignment]; STATE 11785 [sym_varAssignDef]; STATE 13915 [sym_varDef;
   sym_constDef]; STATE 6166 [sym_label]; STATE 15991 [sym__statementsTr];
   STATE 15087 [sym_statementsTr]; STATE 8019 [sym__expr; sym_exprConditional];
   STATE 7478 [sym__ref; sym_lambda; sym_inherited; sym_exprDot; sym_exprDeref; sym_exprAs;
   sym_exprTpl; sym_exprSubscript; sym_exprCall]; STATE 8019 [sym_exprBinary; sym_exprUnary];
   STATE 7478 [sym_exprParens; sym_exprBrackets; sym__literal; sym_literalString];
   STATE 6664 [sym__literalString; sym_literalChar]; STATE 7478 [sym_literalNumber];
   STATE 7742 [sym__literalInt; sym__literalFloat]; STATE 1380 [sym__ppIf];
   STATE 6327 [sym__ppStatementBlock]; STATE 11840 [aux_sym_labeledStatement_repeat1];
   STATE 863 [aux_sym__statementsTr_repeat1]; STATE 6664 [aux_sym_literalString_repeat1];
   ACTIONS 397 [anon_sym_SEMI]; ACTIONS 399 [anon_sym_LBRACK]; ACTIONS 401 [anon_sym_LPAREN];
   ACTIONS 403 [aux_sym__literalString_token1]; ACTIONS 405 [anon_sym_POUND];
   ACTIONS 407 [aux_sym__literalInt_token1]; ACTIONS 409 [aux_sym__literalInt_token2;
   aux_sym__literalInt_token3]; ACTIONS 407 [aux_sym__literalFloat_token1];
   ACTIONS 411 [aux_sym_ppUsesBlock_token1]; ACTIONS 413 [sym_kAdd; sym_kSub];
   ACTIONS 415 [sym_kAt]; ACTIONS 417 [sym_kTrue; sym_kFalse]; ACTIONS 419 [sym_labelNumber];
   ACTIONS 3 [sym__space]; ACTIONS 5 [sym_ppDirective]; ACTIONS 3 [sym_comment];
   ACTIONS 417 [sym_ppFragmentExpr]; ACTIONS 397 [sym_ppFragmentStmt];
   ACTIONS 403 [sym__literalStringMultiline]; ACTIONS 421 [sym_identifier];
   ACTIONS 423 [sym_kSpecialize]; ACTIONS 427 [sym_kAsm]; ACTIONS 429 [sym_kBegin];
   ACTIONS 431 [sym_kCase]; ACTIONS 433 [sym_kConst]; ACTIONS 1570 [sym_kEnd];
   ACTIONS 437 [sym_kFor]; ACTIONS 439 [sym_kFunction]; ACTIONS 441 [sym_kGoto];
   ACTIONS 443 [sym_kIf]; ACTIONS 445 [sym_kInherited]; ACTIONS 417 [sym_kNil];
   ACTIONS 415 [sym_kNot]; ACTIONS 439 [sym_kProcedure]; ACTIONS 447 [sym_kRaise];
   ACTIONS 449 [sym_kRepeat]; ACTIONS 451 [sym_kString]; ACTIONS 453 [sym_kTry];
   ACTIONS 455 [sym_kVar]; ACTIONS 457 [sym_kWhile]; ACTIONS 459 [sym_kWith]].

(** State 248. *)
Definition ts_parse_table_248 : parse_row :=
  [STATE 2899 [sym__ppIf]; STATE 996 [sym__procAttributeNoExt];
   STATE 1005 [sym__procAttributesPp]; STATE 15262 [sym_procAttribute];
   STATE 183 [aux_sym__declProc_repeat1]; ACTIONS 1572 [anon_sym_SEMI; anon_sym_COMMA];
   ACTIONS 1574 [anon_sym_LBRACK]; ACTIONS 1577 [anon_sym_LPAREN];
   ACTIONS 1572 [aux_sym__literalString_token1; anon_sym_POUND];
   ACTIONS 1577 [aux_sym__literalInt_token1]; ACTIONS 1572 [aux_sym__literalInt_token2;
   aux_sym__literalInt_token3]; ACTIONS 1577 [aux_sym__literalFloat_token1];
   ACTIONS 1579 [aux_sym_ppUsesBlock_token1]; ACTIONS 1572 [aux_sym_ppUsesBlock_token2;
   aux_sym_ppUsesBlock_token3]; ACTIONS 1577 [sym_kAdd; sym_kSub]; ACTIONS 1572 [sym_kAt;
   sym_kTrue; sym_kFalse]; ACTIONS 3 [sym__space]; ACTIONS 5 [sym_ppDirective];
   ACTIONS 3 [sym_comment]; ACTIONS 1572 [sym_ppFragmentExpr; sym__literalStringMultiline;
   sym_identifier]; ACTIONS 1582 [sym_kDefault; sym_kNodefault]; ACTIONS 1585 [sym_kDispId];
   ACTIONS 1572 [sym_kGeneric; sym_kSpecialize; sym_kOperator]; ACTIONS 1588 [sym_kPublic];
   ACTIONS 1572 [sym_kForward]; ACTIONS 1582 [sym_kStatic; sym_kVirtual; sym_kAbstract;
   sym_kDynamic; sym_kOverride; sym_kOverload; sym_kReintroduce; sym_kStdcall; sym_kCdecl;
   sym_kCppdecl; sym_kPascal; sym_kRegister; sym_kMwpascal]; ACTIONS 1572 [sym_kExternal];
   ACTIONS 1591 [sym_kMessage]; ACTIONS 1594 [sym_kDeprecated]; ACTIONS 1582 [sym_kExperimental;
   sym_kPlatform; sym_kUnimplemented; sym_kCvar]; ACTIONS 1597 [sym_kExport];
   ACTIONS 1582 [sym_kFar; sym_kNear; sym_kSafecall; sym_kAssembler; sym_kNostackframe;
   sym_kInterrupt; sym_kNoreturn; sym_kIocheck; sym_kLocal; sym_kHardfloat; sym_kSoftfloat;
   sym_kMs_abi_default; sym_kMs_abi_cdecl; sym_kSaveregisters; sym_kSysv_abi_default;
   sym_kSysv_abi_cdecl; sym_kVectorcall; sym_kVarargs; sym_kWinapi]; ACTIONS 1600 [sym_kAlias];
   ACTIONS 1572 [sym_kAsm; sym_kBegin; sym_kCase; sym_kClass; sym_kConst; sym_kConstructor;
   sym_kDestructor; sym_kExports; sym_kFor; sym_kFunction; sym_kGoto; sym_kIf; sym_kInherited];
   ACTIONS 1016 [sym_kInline]; ACTIONS 1572 [sym_kLabel; sym_kNil; sym_kNot; sym_kProcedure;
   sym_kProperty; sym_kRaise; sym_kRepeat; sym_kResourcestring; sym_kString; sym_kThreadvar;
   sym_kTry; sym_kType; sym_kUses; sym_kVar; sym_kWhile; sym_kWith]].

(** State 249. *)
Definition ts_parse_table_249 : parse_row :=
  [STATE 6213 [sym_if]; STATE 6327 [sym_ifElse; sym_while; sym_repeat; sym_for; sym_foreach;
   sym_try; sym_case; sym_block; sym_asm; sym_with; sym_raise; sym_statement; sym_goto;
   sym__statement]; STATE 15991 [sym_ifTr; sym_ifElseTr; sym_whileTr; sym_repeatTr; sym_forTr;
   sym_foreachTr; sym_tryTr; sym_caseTr]; STATE 14251 [sym_blockTr]; STATE 15991 [sym_asmTr;
   sym_withTr; sym_raiseTr; sym_statementTr; sym_gotoTr; sym__statementTr];
   STATE 13915 [sym_assignment]; STATE 11785 [sym_varAssignDef]; STATE 13915 [sym_varDef;
   sym_constDef]; STATE 6166 [sym_label]; STATE 15991 [sym__statementsTr];
   STATE 15552 [sym_statementsTr]; STATE 8019 [sym__expr; sym_exprConditional];
   STATE 7478 [sym__ref; sym_lambda; sym_inherited; sym_exprDot; sym_exprDeref; sym_exprAs;
   sym_exprTpl; sym_exprSubscript; sym_exprCall]; STATE 8019 [sym_exprBinary; sym_exprUnary];
   STATE 7478 [sym_exprParens; sym_exprBrackets; sym__literal; sym_literalString];
   STATE 6664 [sym__literalString; sym_literalChar]; STATE 7478 [sym_literalNumber];
   STATE 7742 [sym__literalInt; sym__literalFloat]; STATE 1380 [sym__ppIf];
   STATE 6327 [sym__ppStatementBlock]; STATE 11840 [aux_sym_labeledStatement_repeat1];
   STATE 863 [aux_sym__statementsTr_repeat1]; STATE 6664 [aux_sym_literalString_repeat1];
   ACTIONS 397 [anon_sym_SEMI]; ACTIONS 399 [anon_sym_LBRACK]; ACTIONS 401 [anon_sym_LPAREN];
   ACTIONS 403 [aux_sym__literalString_token1]; ACTIONS 405 [anon_sym_POUND];
   ACTIONS 407 [aux_sym__literalInt_token1]; ACTIONS 409 [aux_sym__literalInt_token2;
   aux_sym__literalInt_token3]; ACTIONS 407 [aux_sym__literalFloat_token1];
   ACTIONS 411 [aux_sym_ppUsesBlock_token1]; ACTIONS 413 [sym_kAdd; sym_kSub];
   ACTIONS 415 [sym_kAt]; ACTIONS 417 [sym_kTrue; sym_kFalse]; ACTIONS 419 [sym_labelNumber];
   ACTIONS 3 [sym__space]; ACTIONS 5 [sym_ppDirective]; ACTIONS 3 [sym_comment];
   ACTIONS 417 [sym_ppFragmentExpr]; ACTIONS 397 [sym_ppFragmentStmt];
   ACTIONS 403 [sym__literalStringMultiline]; ACTIONS 421 [sym_identifier];
   ACTIONS 423 [sym_kSpecialize]; ACTIONS 427 [sym_kAsm]; ACTIONS 429 [sym_kBegin];
   ACTIONS 431 [sym_kCase]; ACTIONS 433 [sym_kConst]; ACTIONS 1603 [sym_kEnd];
   ACTIONS 437 [sym_kFor]; ACTIONS 439 [sym_kFunction]; ACTIONS 441 [sym_kGoto];
   ACTIONS 443 [sym_kIf]; ACTIONS 445 [sym_kInherited]; ACTIONS 417 [sym_kNil];
   ACTIONS 415 [sym_kNot]; ACTIONS 439 [sym_kProcedure]; ACTIONS 447 [sym_kRaise];
   ACTIONS 449 [sym_kRepeat]; ACTIONS 451 [sym_kString]; ACTIONS 453 [sym_kTry];
   ACTIONS 455 [sym_kVar]; ACTIONS 457 [sym_kWhile]; ACTIONS 459 [sym_kWith]].

(** State 250. *)
Definition ts_parse_table_250 : parse_row :=
  [STATE 6213 [sym_if]; STATE 6327 [sym_ifElse; sym_while; sym_repeat; sym_for; sym_foreach;
   sym_try; sym_case; sym_block; sym_asm; sym_with; sym_raise; sym_statement; sym_goto;
   sym__statement]; STATE 15729 [sym_ifTr; sym_ifElseTr; sym_whileTr; sym_repeatTr; sym_forTr;
   sym_foreachTr; sym_tryTr; sym_caseTr]; STATE 14251 [sym_blockTr]; STATE 15729 [sym_asmTr;
   sym_withTr; sym_raiseTr; sym_statementTr; sym_gotoTr; sym__statementTr];
   STATE 13915 [sym_assignment]; STATE 11785 [sym_varAssignDef]; STATE 13915 [sym_varDef;
   sym_constDef]; STATE 6166 [sym_label]; STATE 15729 [sym__statementsTr]; STATE 8019 [sym__expr;
   sym_exprConditional]; STATE 7478 [sym__ref; sym_lambda; sym_inherited; sym_exprDot;
   sym_exprDeref; sym_exprAs; sym_exprTpl; sym_exprSubscript; sym_exprCall];
   STATE 8019 [sym_exprBinary; sym_exprUnary]; STATE 7478 [sym_exprParens; sym_exprBrackets;
   sym__literal; sym_literalString]; STATE 6664 [sym__literalString; sym_literalChar];
   STATE 7478 [sym_literalNumber]; STATE 7742 [sym__literalInt; sym__literalFloat];
   STATE 1380 [sym__ppIf]; STATE 6327 [sym__ppStatementBlock];
   STATE 11840 [aux_sym_labeledStatement_repeat1]; STATE 863 [aux_sym__statementsTr_repeat1];
   STATE 6664 [aux_sym_literalString_repeat1]; ACTIONS 397 [anon_sym_SEMI];
   ACTIONS 1605 [anon_sym_COLON]; ACTIONS 399 [anon_sym_LBRACK]; ACTIONS 401 [anon_sym_LPAREN];
   ACTIONS 403 [aux_sym__literalString_token1]; ACTIONS 405 [anon_sym_POUND];
   ACTIONS 407 [aux_sym__literalInt_token1]; ACTIONS 409 [aux_sym__literalInt_token2;
   aux_sym__literalInt_token3]; ACTIONS 407 [aux_sym__literalFloat_token1];
   ACTIONS 411 [aux_sym_ppUsesBlock_token1]; ACTIONS 413 [sym_kAdd; sym_kSub];
   ACTIONS 415 [sym_kAt]; ACTIONS 417 [sym_kTrue; sym_kFalse]; ACTIONS 419 [sym_labelNumber];
   ACTIONS 3 [sym__space]; ACTIONS 5 [sym_ppDirective]; ACTIONS 3 [sym_comment];
   ACTIONS 417 [sym_ppFragmentExpr]; ACTIONS 397 [sym_ppFragmentStmt];
   ACTIONS 403 [sym__literalStringMultiline]; ACTIONS 421 [sym_identifier];
   ACTIONS 423 [sym_kSpecialize]; ACTIONS 427 [sym_kAsm]; ACTIONS 429 [sym_kBegin];
   ACTIONS 431 [sym_kCase]; ACTIONS 433 [sym_kConst]; ACTIONS 1607 [sym_kEnd];
   ACTIONS 437 [sym_kFor]; ACTIONS 439 [sym_kFunction]; ACTIONS 441 [sym_kGoto];
   ACTIONS 443 [sym_kIf]; ACTIONS 445 [sym_kInherited]; ACTIONS 417 [sym_kNil];
   ACTIONS 415 [sym_kNot]; ACTIONS 439 [sym_kProcedure]; ACTIONS 447 [sym_kRaise];
   ACTIONS 449 [sym_kRepeat]; ACTIONS 451 [sym_kString]; ACTIONS 453 [sym_kTry];
   ACTIONS 455 [sym_kVar]; ACTIONS 457 [sym_kWhile]; ACTIONS 459 [sym_kWith]].

(** State 251. *)
Definition ts_parse_table_251 : parse_row :=
  [STATE 6213 [sym_if]; STATE 6327 [sym_ifElse; sym_while; sym_repeat; sym_for; sym_foreach;
   sym_try; sym_case; sym_block; sym_asm; sym_with; sym_raise; sym_statement; sym_goto;
   sym__statement]; STATE 15902 [sym_ifTr; sym_ifElseTr; sym_whileTr; sym_repeatTr; sym_forTr;
   sym_foreachTr; sym_tryTr; sym_caseTr]; STATE 14251 [sym_blockTr]; STATE 15902 [sym_asmTr;
   sym_withTr; sym_raiseTr; sym_statementTr; sym_gotoTr; sym__statementTr];
   STATE 13915 [sym_assignment]; STATE 11785 [sym_varAssignDef]; STATE 13915 [sym_varDef;
   sym_constDef]; STATE 6166 [sym_label]; STATE 15902 [sym__statementsTr]; STATE 8019 [sym__expr;
   sym_exprConditional]; STATE 7478 [sym__ref; sym_lambda; sym_inherited; sym_exprDot;
   sym_exprDeref; sym_exprAs; sym_exprTpl; sym_exprSubscript; sym_exprCall];
   STATE 8019 [sym_exprBinary; sym_exprUnary]; STATE 7478 [sym_exprParens; sym_exprBrackets;
   sym__literal; sym_literalString]; STATE 6664 [sym__literalString; sym_literalChar];
   STATE 7478 [sym_literalNumber]; STATE 7742 [sym__literalInt; sym__literalFloat];
   STATE 1380 [sym__ppIf]; STATE 6327 [sym__ppStatementBlock];
   STATE 11840 [aux_sym_labeledStatement_repeat1]; STATE 863 [aux_sym__statementsTr_repeat1];
   STATE 6664 [aux_sym_literalString_repeat1]; ACTIONS 397 [anon_sym_SEMI];
   ACTIONS 1609 [anon_sym_COLON]; ACTIONS 399 [anon_sym_LBRACK]; ACTIONS 401 [anon_sym_LPAREN];
   ACTIONS 403 [aux_sym__literalString_token1]; ACTIONS 405 [anon_sym_POUND];
   ACTIONS 407 [aux_sym__literalInt_token1]; ACTIONS 409 [aux_sym__literalInt_token2;
   aux_sym__literalInt_token3]; ACTIONS 407 [aux_sym__literalFloat_token1];
   ACTIONS 411 [aux_sym_ppUsesBlock_token1]; ACTIONS 413 [sym_kAdd; sym_kSub];
   ACTIONS 415 [sym_kAt]; ACTIONS 417 [sym_kTrue; sym_kFalse]; ACTIONS 419 [sym_labelNumber];
   ACTIONS 3 [sym__space]; ACTIONS 5 [sym_ppDirective]; ACTIONS 3 [sym_comment];
   ACTIONS 417 [sym_ppFragmentExpr]; ACTIONS 397 [sym_ppFragmentStmt];
   ACTIONS 403 [sym__literalStringMultiline]; ACTIONS 421 [sym_identifier];
   ACTIONS 423 [sym_kSpecialize]; ACTIONS 427 [sym_kAsm]; ACTIONS 429 [sym_kBegin];
   ACTIONS 431 [sym_kCase]; ACTIONS 433 [sym_kConst]; ACTIONS 1611 [sym_kEnd];
   ACTIONS 437 [sym_kFor]; ACTIONS 439 [sym_kFunction]; ACTIONS 441 [sym_kGoto];
   ACTIONS 443 [sym_kIf]; ACTIONS 445 [sym_kInherited]; ACTIONS 417 [sym_kNil];
   ACTIONS 415 [sym_kNot]; ACTIONS 439 [sym_kProcedure]; ACTIONS 447 [sym_kRaise];
   ACTIONS 449 [sym_kRepeat]; ACTIONS 451 [sym_kString]; ACTIONS 453 [sym_kTry];
   ACTIONS 455 [sym_kVar]; ACTIONS 457 [sym_kWhile]; ACTIONS 459 [sym_kWith]].

(** State 252. *)
Definition ts_parse_table_252 : parse_row :=
  [STATE 6213 [sym_if]; STATE 6327 [sym_ifElse; sym_while; sym_repeat; sym_for; sym_foreach;
   sym_try; sym_case; sym_block; sym_asm; sym_with; sym_raise; sym_statement; sym_goto;
   sym__statement]; STATE 15941 [sym_ifTr; sym_ifElseTr; sym_whileTr; sym_repeatTr; sym_forTr;
   sym_foreachTr; sym_tryTr; sym_caseTr]; STATE 14251 [sym_blockTr]; STATE 15941 [sym_asmTr;
   sym_withTr; sym_raiseTr; sym_statementTr; sym_gotoTr; sym__statementTr];
   STATE 13915 [sym_assignment]; STATE 11785 [sym_varAssignDef]; STATE 13915 [sym_varDef;
   sym_constDef]; STATE 6166 [sym_label]; STATE 15941 [sym__statementsTr]; STATE 8019 [sym__expr;
   sym_exprConditional]; STATE 7478 [sym__ref; sym_lambda; sym_inherited; sym_exprDot;
   sym_exprDeref; sym_exprAs; sym_exprTpl; sym_exprSubscript; sym_exprCall];
   STATE 8019 [sym_exprBinary; sym_exprUnary]; STATE 7478 [sym_exprParens; sym_exprBrackets;
   sym__literal; sym_literalString]; STATE 6664 [sym__literalString; sym_literalChar];
   STATE 7478 [sym_literalNumber]; STATE 7742 [sym__literalInt; sym__literalFloat];
   STATE 1380 [sym__ppIf]; STATE 6327 [sym__ppStatementBlock];
   STATE 11840 [aux_sym_labeledStatement_repeat1]; STATE 863 [aux_sym__statementsTr_repeat1];
   STATE 6664 [aux_sym_literalString_repeat1]; ACTIONS 397 [anon_sym_SEMI];
   ACTIONS 1613 [anon_sym_COLON]; ACTIONS 399 [anon_sym_LBRACK]; ACTIONS 401 [anon_sym_LPAREN];
   ACTIONS 403 [aux_sym__literalString_token1]; ACTIONS 405 [anon_sym_POUND];
   ACTIONS 407 [aux_sym__literalInt_token1]; ACTIONS 409 [aux_sym__literalInt_token2;
   aux_sym__literalInt_token3]; ACTIONS 407 [aux_sym__literalFloat_token1];
   ACTIONS 411 [aux_sym_ppUsesBlock_token1]; ACTIONS 413 [sym_kAdd; sym_kSub];
   ACTIONS 415 [sym_kAt]; ACTIONS 417 [sym_kTrue; sym_kFalse]; ACTIONS 419 [sym_labelNumber];
   ACTIONS 3 [sym__space]; ACTIONS 5 [sym_ppDirective]; ACTIONS 3 [sym_comment];
   ACTIONS 417 [sym_ppFragmentExpr]; ACTIONS 397 [sym_ppFragmentStmt];
   ACTIONS 403 [sym__literalStringMultiline]; ACTIONS 421 [sym_identifier];
   ACTIONS 423 [sym_kSpecialize]; ACTIONS 427 [sym_kAsm]; ACTIONS 429 [sym_kBegin];
   ACTIONS 431 [sym_kCase]; ACTIONS 433 [sym_kConst]; ACTIONS 1615 [sym_kEnd];
   ACTIONS 437 [sym_kFor]; ACTIONS 439 [sym_kFunction]; ACTIONS 441 [sym_kGoto];
   ACTIONS 443 [sym_kIf]; ACTIONS 445 [sym_kInherited]; ACTIONS 417 [sym_kNil];
   ACTIONS 415 [sym_kNot]; ACTIONS 439 [sym_kProcedure]; ACTIONS 447 [sym_kRaise];
   ACTIONS 449 [sym_kRepeat]; ACTIONS 451 [sym_kString]; ACTIONS 453 [sym_kTry];
   ACTIONS 455 [sym_kVar]; ACTIONS 457 [sym_kWhile]; ACTIONS 459 [sym_kWith]].

(** State 253. *)
Definition ts_parse_table_253 : parse_row :=
  [STATE 2899 [sym__ppIf]; STATE 996 [sym__procAttributeNoExt];
   STATE 1005 [sym__procAttributesPp]; STATE 15262 [sym_procAttribute];
   STATE 293 [aux_sym__declProc_repeat1]; ACTIONS 1617 [anon_sym_SEMI; anon_sym_COMMA];
   ACTIONS 1619 [anon_sym_LBRACK]; ACTIONS 1622 [anon_sym_LPAREN];
   ACTIONS 1617 [aux_sym__literalString_token1; anon_sym_POUND];
   ACTIONS 1622 [aux_sym__literalInt_token1]; ACTIONS 1617 [aux_sym__literalInt_token2;
   aux_sym__literalInt_token3]; ACTIONS 1622 [aux_sym__literalFloat_token1];
   ACTIONS 1624 [aux_sym_ppUsesBlock_token1]; ACTIONS 1617 [aux_sym_ppUsesBlock_token2;
   aux_sym_ppUsesBlock_token3]; ACTIONS 1622 [sym_kAdd; sym_kSub]; ACTIONS 1617 [sym_kAt;
   sym_kTrue; sym_kFalse]; ACTIONS 3 [sym__space]; ACTIONS 5 [sym_ppDirective];
   ACTIONS 3 [sym_comment]; ACTIONS 1617 [sym_ppFragmentExpr; sym__literalStringMultiline;
   sym_identifier]; ACTIONS 1627 [sym_kDefault; sym_kNodefault]; ACTIONS 1630 [sym_kDispId];
   ACTIONS 1617 [sym_kGeneric; sym_kSpecialize; sym_kOperator]; ACTIONS 1633 [sym_kPublic];
   ACTIONS 1617 [sym_kForward]; ACTIONS 1627 [sym_kStatic; sym_kVirtual; sym_kAbstract;
   sym_kDynamic; sym_kOverride; sym_kOverload; sym_kReintroduce; sym_kStdcall; sym_kCdecl;
   sym_kCppdecl; sym_kPascal; sym_kRegister; sym_kMwpascal]; ACTIONS 1617 [sym_kExternal];
   ACTIONS 1636 [sym_kMessage]; ACTIONS 1639 [sym_kDeprecated]; ACTIONS 1627 [sym_kExperimental;
   sym_kPlatform; sym_kUnimplemented; sym_kCvar]; ACTIONS 1642 [sym_kExport];
   ACTIONS 1627 [sym_kFar; sym_kNear; sym_kSafecall; sym_kAssembler; sym_kNostackframe;
   sym_kInterrupt; sym_kNoreturn; sym_kIocheck; sym_kLocal; sym_kHardfloat; sym_kSoftfloat;
   sym_kMs_abi_default; sym_kMs_abi_cdecl; sym_kSaveregisters; sym_kSysv_abi_default;
   sym_kSysv_abi_cdecl; sym_kVectorcall; sym_kVarargs; sym_kWinapi]; ACTIONS 1645 [sym_kAlias];
   ACTIONS 1617 [sym_kAsm; sym_kBegin; sym_kCase; sym_kClass; sym_kConst; sym_kConstructor;
   sym_kDestructor; sym_kExports; sym_kFor; sym_kFunction; sym_kGoto; sym_kIf; sym_kInherited];
   ACTIONS 1016 [sym_kInline]; ACTIONS 1617 [sym_kLabel; sym_kNil; sym_kNot; sym_kProcedure;
   sym_kProperty; sym_kRaise; sym_kRepeat; sym_kResourcestring; sym_kString; sym_kThreadvar;
   sym_kTry; sym_kType; sym_kUses; sym_kVar; sym_kWhile; sym_kWith]].

(** State 254. *)
Definition ts_parse_table_254 : parse_row :=
  [STATE 2899 [sym__ppIf]; STATE 996 [sym__procAttributeNoExt];
   STATE 1005 [sym__procAttributesPp]; STATE 15262 [sym_procAttribute];
   STATE 295 [aux_sym__declProc_repeat1]; ACTIONS 1648 [anon_sym_SEMI; anon_sym_COMMA];
   ACTIONS 1650 [anon_sym_LBRACK]; ACTIONS 1653 [anon_sym_LPAREN];
   ACTIONS 1648 [aux_sym__literalString_token1; anon_sym_POUND];
   ACTIONS 1653 [aux_sym__literalInt_token1]; ACTIONS 1648 [aux_sym__literalInt_token2;
   aux_sym__literalInt_token3]; ACTIONS 1653 [aux_sym__literalFloat_token1];
   ACTIONS 1655 [aux_sym_ppUsesBlock_token1]; ACTIONS 1648 [aux_sym_ppUsesBlock_token2;
   aux_sym_ppUsesBlock_token3]; ACTIONS 1653 [sym_kAdd; sym_kSub]; ACTIONS 1648 [sym_kAt;
   sym_kTrue; sym_kFalse]; ACTIONS 3 [sym__space]; ACTIONS 5 [sym_ppDirective];
   ACTIONS 3 [sym_comment]; ACTIONS 1648 [sym_ppFragmentExpr; sym__literalStringMultiline;
   sym_identifier]; ACTIONS 1658 [sym_kDefault; sym_kNodefault]; ACTIONS 1661 [sym_kDispId];
   ACTIONS 1648 [sym_kGeneric; sym_kSpecialize; sym_kOperator]; ACTIONS 1664 [sym_kPublic];
   ACTIONS 1648 [sym_kForward]; ACTIONS 1658 [sym_kStatic; sym_kVirtual; sym_kAbstract;
   sym_kDynamic; sym_kOverride; sym_kOverload; sym_kReintroduce; sym_kStdcall; sym_kCdecl;
   sym_kCppdecl; sym_kPascal; sym_kRegister; sym_kMwpascal]; ACTIONS 1648 [sym_kExternal];
   ACTIONS 1667 [sym_kMessage]; ACTIONS 1670 [sym_kDeprecated]; ACTIONS 1658 [sym_kExperimental;
   sym_kPlatform; sym_kUnimplemented; sym_kCvar]; ACTIONS 1673 [sym_kExport];
   ACTIONS 1658 [sym_kFar; sym_kNear; sym_kSafecall; sym_kAssembler; sym_kNostackframe;
   sym_kInterrupt; sym_kNoreturn; sym_kIocheck; sym_kLocal; sym_kHardfloat; sym_kSoftfloat;
   sym_kMs_abi_default; sym_kMs_abi_cdecl; sym_kSaveregisters; sym_kSysv_abi_default;
   sym_kSysv_abi_cdecl; sym_kVectorcall; sym_kVarargs; sym_kWinapi]; ACTIONS 1676 [sym_kAlias];
   ACTIONS 1648 [sym_kAsm; sym_kBegin; sym_kCase; sym_kClass; sym_kConst; sym_kConstructor;
   sym_kDestructor; sym_kExports; sym_kFor; sym_kFunction; sym_kGoto; sym_kIf; sym_kInherited];
   ACTIONS 1016 [sym_kInline]; ACTIONS 1648 [sym_kLabel; sym_kNil; sym_kNot; sym_kProcedure;
   sym_kProperty; sym_kRaise; sym_kRepeat; sym_kResourcestring; sym_kString; sym_kThreadvar;
   sym_kTry; sym_kType; sym_kUses; sym_kVar; sym_kWhile; sym_kWith]].

(** State 255. *)
Definition ts_parse_table_255 : parse_row :=
  [STATE 6213 [sym_if]; STATE 6327 [sym_ifElse; sym_while; sym_repeat; sym_for; sym_foreach;
   sym_try; sym_case; sym_block; sym_asm; sym_with; sym_raise; sym_statement; sym_goto;
   sym__statement]; STATE 15991 [sym_ifTr; sym_ifElseTr; sym_whileTr; sym_repeatTr; sym_forTr;
   sym_foreachTr; sym_tryTr; sym_caseTr]; STATE 14251 [sym_blockTr]; STATE 15991 [sym_asmTr;
   sym_withTr; sym_raiseTr; sym_statementTr; sym_gotoTr; sym__statementTr];
   STATE 13915 [sym_assignment]; STATE 11785 [sym_varAssignDef]; STATE 13915 [sym_varDef;
   sym_constDef]; STATE 6166 [sym_label]; STATE 15991 [sym__statementsTr];
   STATE 14719 [sym_statementsTr]; STATE 8019 [sym__expr; sym_exprConditional];
   STATE 7478 [sym__ref; sym_lambda; sym_inherited; sym_exprDot; sym_exprDeref; sym_exprAs;
   sym_exprTpl; sym_exprSubscript; sym_exprCall]; STATE 8019 [sym_exprBinary; sym_exprUnary];
   STATE 7478 [sym_exprParens; sym_exprBrackets; sym__literal; sym_literalString];
   STATE 6664 [sym__literalString; sym_literalChar]; STATE 7478 [sym_literalNumber];
   STATE 7742 [sym__literalInt; sym__literalFloat]; STATE 1380 [sym__ppIf];
   STATE 6327 [sym__ppStatementBlock]; STATE 11840 [aux_sym_labeledStatement_repeat1];
   STATE 863 [aux_sym__statementsTr_repeat1]; STATE 6664 [aux_sym_literalString_repeat1];
   ACTIONS 397 [anon_sym_SEMI]; ACTIONS 399 [anon_sym_LBRACK]; ACTIONS 401 [anon_sym_LPAREN];
   ACTIONS 403 [aux_sym__literalString_token1]; ACTIONS 405 [anon_sym_POUND];
   ACTIONS 407 [aux_sym__literalInt_token1]; ACTIONS 409 [aux_sym__literalInt_token2;
   aux_sym__literalInt_token3]; ACTIONS 407 [aux_sym__literalFloat_token1];
   ACTIONS 411 [aux_sym_ppUsesBlock_token1]; ACTIONS 413 [sym_kAdd; sym_kSub];
   ACTIONS 415 [sym_kAt]; ACTIONS 417 [sym_kTrue; sym_kFalse]; ACTIONS 419 [sym_labelNumber];
   ACTIONS 3 [sym__space]; ACTIONS 5 [sym_ppDirective]; ACTIONS 3 [sym_comment];
   ACTIONS 417 [sym_ppFragmentExpr]; ACTIONS 397 [sym_ppFragmentStmt];
   ACTIONS 403 [sym__literalStringMultiline]; ACTIONS 421 [sym_identifier];
   ACTIONS 423 [sym_kSpecialize]; ACTIONS 427 [sym_kAsm]; ACTIONS 429 [sym_kBegin];
   ACTIONS 431 [sym_kCase]; ACTIONS 433 [sym_kConst]; ACTIONS 1679 [sym_kEnd];
   ACTIONS 437 [sym_kFor]; ACTIONS 439 [sym_kFunction]; ACTIONS 441 [sym_kGoto];
   ACTIONS 443 [sym_kIf]; ACTIONS 445 [sym_kInherited]; ACTIONS 417 [sym_kNil];
   ACTIONS 415 [sym_kNot]; ACTIONS 439 [sym_kProcedure]; ACTIONS 447 [sym_kRaise];
   ACTIONS 449 [sym_kRepeat]; ACTIONS 451 [sym_kString]; ACTIONS 453 [sym_kTry];
   ACTIONS 455 [sym_kVar]; ACTIONS 457 [sym_kWhile]; ACTIONS 459 [sym_kWith]].

(** State 256. *)
Definition ts_parse_table_256 : parse_row :=
  [STATE 6213 [sym_if]; STATE 6327 [sym_ifElse; sym_while; sym_repeat; sym_for; sym_foreach;
   sym_try; sym_case; sym_block; sym_asm; sym_with; sym_raise; sym_statement; sym_goto;
   sym__statement]; STATE 15991 [sym_ifTr; sym_ifElseTr; sym_whileTr; sym_repeatTr; sym_forTr;
   sym_foreachTr; sym_tryTr; sym_caseTr]; STATE 14251 [sym_blockTr]; STATE 15991 [sym_asmTr;
   sym_withTr; sym_raiseTr; sym_statementTr; sym_gotoTr; sym__statementTr];
   STATE 13915 [sym_assignment]; STATE 11785 [sym_varAssignDef]; STATE 13915 [sym_varDef;
   sym_constDef]; STATE 6166 [sym_label]; STATE 15991 [sym__statementsTr];
   STATE 14887 [sym_statementsTr]; STATE 8019 [sym__expr; sym_exprConditional];
   STATE 7478 [sym__ref; sym_lambda; sym_inherited; sym_exprDot; sym_exprDeref; sym_exprAs;
   sym_exprTpl; sym_exprSubscript; sym_exprCall]; STATE 8019 [sym_exprBinary; sym_exprUnary];
   STATE 7478 [sym_exprParens; sym_exprBrackets; sym__literal; sym_literalString];
   STATE 6664 [sym__literalString; sym_literalChar]; STATE 7478 [sym_literalNumber];
   STATE 7742 [sym__literalInt; sym__literalFloat]; STATE 1380 [sym__ppIf];
   STATE 6327 [sym__ppStatementBlock]; STATE 11840 [aux_sym_labeledStatement_repeat1];
   STATE 863 [aux_sym__statementsTr_repeat1]; STATE 6664 [aux_sym_literalString_repeat1];
   ACTIONS 397 [anon_sym_SEMI]; ACTIONS 399 [anon_sym_LBRACK]; ACTIONS 401 [anon_sym_LPAREN];
   ACTIONS 403 [aux_sym__literalString_token1]; ACTIONS 405 [anon_sym_POUND];
   ACTIONS 407 [aux_sym__literalInt_token1]; ACTIONS 409 [aux_sym__literalInt_token2;
   aux_sym__literalInt_token3]; ACTIONS 407 [aux_sym__literalFloat_token1];
   ACTIONS 411 [aux_sym_ppUsesBlock_token1]; ACTIONS 413 [sym_kAdd; sym_kSub];
   ACTIONS 415 [sym_kAt]; ACTIONS 417 [sym_kTrue; sym_kFalse]; ACTIONS 419 [sym_labelNumber];
   ACTIONS 3 [sym__space]; ACTIONS 5 [sym_ppDirective]; ACTIONS 3 [sym_comment];
   ACTIONS 417 [sym_ppFragmentExpr]; ACTIONS 397 [sym_ppFragmentStmt];
   ACTIONS 403 [sym__literalStringMultiline]; ACTIONS 421 [sym_identifier];
   ACTIONS 423 [sym_kSpecialize]; ACTIONS 427 [sym_kAsm]; ACTIONS 429 [sym_kBegin];
   ACTIONS 431 [sym_kCase]; ACTIONS 433 [sym_kConst]; ACTIONS 1681 [sym_kEnd];
   ACTIONS 437 [sym_kFor]; ACTIONS 439 [sym_kFunction]; ACTIONS 441 [sym_kGoto];
   ACTIONS 443 [sym_kIf]; ACTIONS 445 [sym_kInherited]; ACTIONS 417 [sym_kNil];
   ACTIONS 415 [sym_kNot]; ACTIONS 439 [sym_kProcedure]; ACTIONS 447 [sym_kRaise];
   ACTIONS 449 [sym_kRepeat]; ACTIONS 451 [sym_kString]; ACTIONS 453 [sym_kTry];
   ACTIONS 455 [sym_kVar]; ACTIONS 457 [sym_kWhile]; ACTIONS 459 [sym_kWith]].

(** State 257. *)
Definition ts_parse_table_257 : parse_row :=
  [STATE 6213 [sym_if]; STATE 6327 [sym_ifElse; sym_while; sym_repeat; sym_for; sym_foreach;
   sym_try; sym_case; sym_block; sym_asm; sym_with; sym_raise; sym_statement; sym_goto;
   sym__statement]; STATE 14945 [sym_ifTr; sym_ifElseTr; sym_whileTr; sym_repeatTr; sym_forTr;
   sym_foreachTr; sym_tryTr; sym_caseTr]; STATE 14251 [sym_blockTr]; STATE 14945 [sym_asmTr;
   sym_withTr; sym_raiseTr; sym_statementTr; sym_gotoTr; sym__statementTr];
   STATE 13915 [sym_assignment]; STATE 11785 [sym_varAssignDef]; STATE 13915 [sym_varDef;
   sym_constDef]; STATE 6166 [sym_label]; STATE 14945 [sym__statementsTr]; STATE 8019 [sym__expr;
   sym_exprConditional]; STATE 7478 [sym__ref; sym_lambda; sym_inherited; sym_exprDot;
   sym_exprDeref; sym_exprAs; sym_exprTpl; sym_exprSubscript; sym_exprCall];
   STATE 8019 [sym_exprBinary; sym_exprUnary]; STATE 7478 [sym_exprParens; sym_exprBrackets;
   sym__literal; sym_literalString]; STATE 6664 [sym__literalString; sym_literalChar];
   STATE 7478 [sym_literalNumber]; STATE 7742 [sym__literalInt; sym__literalFloat];
   STATE 1380 [sym__ppIf]; STATE 6327 [sym__ppStatementBlock];
   STATE 11840 [aux_sym_labeledStatement_repeat1]; STATE 863 [aux_sym__statementsTr_repeat1];
   STATE 6664 [aux_sym_literalString_repeat1]; ACTIONS 397 [anon_sym_SEMI];
   ACTIONS 1683 [anon_sym_COLON]; ACTIONS 399 [anon_sym_LBRACK]; ACTIONS 401 [anon_sym_LPAREN];
   ACTIONS 403 [aux_sym__literalString_token1]; ACTIONS 405 [anon_sym_POUND];
   ACTIONS 407 [aux_sym__literalInt_token1]; ACTIONS 409 [aux_sym__literalInt_token2;
   aux_sym__literalInt_token3]; ACTIONS 407 [aux_sym__literalFloat_token1];
   ACTIONS 411 [aux_sym_ppUsesBlock_token1]; ACTIONS 413 [sym_kAdd; sym_kSub];
   ACTIONS 415 [sym_kAt]; ACTIONS 417 [sym_kTrue; sym_kFalse]; ACTIONS 419 [sym_labelNumber];
   ACTIONS 3 [sym__space]; ACTIONS 5 [sym_ppDirective]; ACTIONS 3 [sym_comment];
   ACTIONS 417 [sym_ppFragmentExpr]; ACTIONS 397 [sym_ppFragmentStmt];
   ACTIONS 403 [sym__literalStringMultiline]; ACTIONS 421 [sym_identifier];
   ACTIONS 423 [sym_kSpecialize]; ACTIONS 427 [sym_kAsm]; ACTIONS 429 [sym_kBegin];
   ACTIONS 431 [sym_kCase]; ACTIONS 433 [sym_kConst]; ACTIONS 1685 [sym_kEnd];
   ACTIONS 437 [sym_kFor]; ACTIONS 439 [sym_kFunction]; ACTIONS 441 [sym_kGoto];
   ACTIONS 443 [sym_kIf]; ACTIONS 445 [sym_kInherited]; ACTIONS 417 [sym_kNil];
   ACTIONS 415 [sym_kNot]; ACTIONS 439 [sym_kProcedure]; ACTIONS 447 [sym_kRaise];
   ACTIONS 449 [sym_kRepeat]; ACTIONS 451 [sym_kString]; ACTIONS 453 [sym_kTry];
   ACTIONS 455 [sym_kVar]; ACTIONS 457 [sym_kWhile]; ACTIONS 459 [sym_kWith]].

(** State 258. *)
Definition ts_parse_table_258 : parse_row :=
  [STATE 6213 [sym_if]; STATE 6327 [sym_ifElse; sym_while; sym_repeat; sym_for; sym_foreach;
   sym_try; sym_case; sym_block; sym_asm; sym_with; sym_raise; sym_statement; sym_goto;
   sym__statement]; STATE 14984 [sym_ifTr; sym_ifElseTr; sym_whileTr; sym_repeatTr; sym_forTr;
   sym_foreachTr; sym_tryTr; sym_caseTr]; STATE 14251 [sym_blockTr]; STATE 14984 [sym_asmTr;
   sym_withTr; sym_raiseTr; sym_statementTr; sym_gotoTr; sym__statementTr];
   STATE 13915 [sym_assignment]; STATE 11785 [sym_varAssignDef]; STATE 13915 [sym_varDef;
   sym_constDef]; STATE 6166 [sym_label]; STATE 14984 [sym__statementsTr]; STATE 8019 [sym__expr;
   sym_exprConditional]; STATE 7478 [sym__ref; sym_lambda; sym_inherited; sym_exprDot;
   sym_exprDeref; sym_exprAs; sym_exprTpl; sym_exprSubscript; sym_exprCall];
   STATE 8019 [sym_exprBinary; sym_exprUnary]; STATE 7478 [sym_exprParens; sym_exprBrackets;
   sym__literal; sym_literalString]; STATE 6664 [sym__literalString; sym_literalChar];
   STATE 7478 [sym_literalNumber]; STATE 7742 [sym__literalInt; sym__literalFloat];
   STATE 1380 [sym__ppIf]; STATE 6327 [sym__ppStatementBlock];
   STATE 11840 [aux_sym_labeledStatement_repeat1]; STATE 863 [aux_sym__statementsTr_repeat1];
   STATE 6664 [aux_sym_literalString_repeat1]; ACTIONS 397 [anon_sym_SEMI];
   ACTIONS 1687 [anon_sym_COLON]; ACTIONS 399 [anon_sym_LBRACK]; ACTIONS 401 [anon_sym_LPAREN];
   ACTIONS 403 [aux_sym__literalString_token1]; ACTIONS 405 [anon_sym_POUND];
   ACTIONS 407 [aux_sym__literalInt_token1]; ACTIONS 409 [aux_sym__literalInt_token2;
   aux_sym__literalInt_token3]; ACTIONS 407 [aux_sym__literalFloat_token1];
   ACTIONS 411 [aux_sym_ppUsesBlock_token1]; ACTIONS 413 [sym_kAdd; sym_kSub];
   ACTIONS 415 [sym_kAt]; ACTIONS 417 [sym_kTrue; sym_kFalse]; ACTIONS 419 [sym_labelNumber];
   ACTIONS 3 [sym__space]; ACTIONS 5 [sym_ppDirective]; ACTIONS 3 [sym_comment];
   ACTIONS 417 [sym_ppFragmentExpr]; ACTIONS 397 [sym_ppFragmentStmt];
   ACTIONS 403 [sym__literalStringMultiline]; ACTIONS 421 [sym_identifier];
   ACTIONS 423 [sym_kSpecialize]; ACTIONS 427 [sym_kAsm]; ACTIONS 429 [sym_kBegin];
   ACTIONS 431 [sym_kCase]; ACTIONS 433 [sym_kConst]; ACTIONS 1689 [sym_kEnd];
   ACTIONS 437 [sym_kFor]; ACTIONS 439 [sym_kFunction]; ACTIONS 441 [sym_kGoto];
   ACTIONS 443 [sym_kIf]; ACTIONS 445 [sym_kInherited]; ACTIONS 417 [sym_kNil];
   ACTIONS 415 [sym_kNot]; ACTIONS 439 [sym_kProcedure]; ACTIONS 447 [sym_kRaise];
   ACTIONS 449 [sym_kRepeat]; ACTIONS 451 [sym_kString]; ACTIONS 453 [sym_kTry];
   ACTIONS 455 [sym_kVar]; ACTIONS 457 [sym_kWhile]; ACTIONS 459 [sym_kWith]].

(** State 259. *)
Definition ts_parse_table_259 : parse_row :=
  [STATE 6213 [sym_if]; STATE 6327 [sym_ifElse; sym_while; sym_repeat; sym_for; sym_foreach;
   sym_try; sym_case; sym_block; sym_asm; sym_with; sym_raise; sym_statement; sym_goto;
   sym__statement]; STATE 15020 [sym_ifTr; sym_ifElseTr; sym_whileTr; sym_repeatTr; sym_forTr;
   sym_foreachTr; sym_tryTr; sym_caseTr]; STATE 14251 [sym_blockTr]; STATE 15020 [sym_asmTr;
   sym_withTr; sym_raiseTr; sym_statementTr; sym_gotoTr; sym__statementTr];
   STATE 13915 [sym_assignment]; STATE 11785 [sym_varAssignDef]; STATE 13915 [sym_varDef;
   sym_constDef]; STATE 6166 [sym_label]; STATE 15020 [sym__statementsTr]; STATE 8019 [sym__expr;
   sym_exprConditional]; STATE 7478 [sym__ref; sym_lambda; sym_inherited; sym_exprDot;
   sym_exprDeref; sym_exprAs; sym_exprTpl; sym_exprSubscript; sym_exprCall];
   STATE 8019 [sym_exprBinary; sym_exprUnary]; STATE 7478 [sym_exprParens; sym_exprBrackets;
   sym__literal; sym_literalString]; STATE 6664 [sym__literalString; sym_literalChar];
   STATE 7478 [sym_literalNumber]; STATE 7742 [sym__literalInt; sym__literalFloat];
   STATE 1380 [sym__ppIf]; STATE 6327 [sym__ppStatementBlock];
   STATE 11840 [aux_sym_labeledStatement_repeat1]; STATE 863 [aux_sym__statementsTr_repeat1];
   STATE 6664 [aux_sym_literalString_repeat1]; ACTIONS 397 [anon_sym_SEMI];
   ACTIONS 1691 [anon_sym_COLON]; ACTIONS 399 [anon_sym_LBRACK]; ACTIONS 401 [anon_sym_LPAREN];
   ACTIONS 403 [aux_sym__literalString_token1]; ACTIONS 405 [anon_sym_POUND];
   ACTIONS 407 [aux_sym__literalInt_token1]; ACTIONS 409 [aux_sym__literalInt_token2;
   aux_sym__literalInt_token3]; ACTIONS 407 [aux_sym__literalFloat_token1];
   ACTIONS 411 [aux_sym_ppUsesBlock_token1]; ACTIONS 413 [sym_kAdd; sym_kSub];
   ACTIONS 415 [sym_kAt]; ACTIONS 417 [sym_kTrue; sym_kFalse]; ACTIONS 419 [sym_labelNumber];
   ACTIONS 3 [sym__space]; ACTIONS 5 [sym_ppDirective]; ACTIONS 3 [sym_comment];
   ACTIONS 417 [sym_ppFragmentExpr]; ACTIONS 397 [sym_ppFragmentStmt];
   ACTIONS 403 [sym__literalStringMultiline]; ACTIONS 421 [sym_identifier];
   ACTIONS 423 [sym_kSpecialize]; ACTIONS 427 [sym_kAsm]; ACTIONS 429 [sym_kBegin];
   ACTIONS 431 [sym_kCase]; ACTIONS 433 [sym_kConst]; ACTIONS 1693 [sym_kEnd];
   ACTIONS 437 [sym_kFor]; ACTIONS 439 [sym_kFunction]; ACTIONS 441 [sym_kGoto];
   ACTIONS 443 [sym_kIf]; ACTIONS 445 [sym_kInherited]; ACTIONS 417 [sym_kNil];
   ACTIONS 415 [sym_kNot]; ACTIONS 439 [sym_kProcedure]; ACTIONS 447 [sym_kRaise];
   ACTIONS 449 [sym_kRepeat]; ACTIONS 451 [sym_kString]; ACTIONS 453 [sym_kTry];
   ACTIONS 455 [sym_kVar]; ACTIONS 457 [sym_kWhile]; ACTIONS 459 [sym_kWith]].

(** State 260. *)
Definition ts_parse_table_260 : parse_row :=
  [STATE 6213 [sym_if]; STATE 6327 [sym_ifElse; sym_while; sym_repeat; sym_for; sym_foreach;
   sym_try; sym_case; sym_block; sym_asm; sym_with; sym_raise; sym_statement; sym_goto;
   sym__statement]; STATE 15991 [sym_ifTr; sym_ifElseTr; sym_whileTr; sym_repeatTr; sym_forTr;
   sym_foreachTr; sym_tryTr; sym_caseTr]; STATE 14251 [sym_blockTr]; STATE 15991 [sym_asmTr;
   sym_withTr; sym_raiseTr; sym_statementTr; sym_gotoTr; sym__statementTr];
   STATE 13915 [sym_assignment]; STATE 11785 [sym_varAssignDef]; STATE 13915 [sym_varDef;
   sym_constDef]; STATE 6166 [sym_label]; STATE 15991 [sym__statementsTr];
   STATE 15507 [sym_statementsTr]; STATE 8019 [sym__expr; sym_exprConditional];
   STATE 7478 [sym__ref; sym_lambda; sym_inherited; sym_exprDot; sym_exprDeref; sym_exprAs;
   sym_exprTpl; sym_exprSubscript; sym_exprCall]; STATE 8019 [sym_exprBinary; sym_exprUnary];
   STATE 7478 [sym_exprParens; sym_exprBrackets; sym__literal; sym_literalString];
   STATE 6664 [sym__literalString; sym_literalChar]; STATE 7478 [sym_literalNumber];
   STATE 7742 [sym__literalInt; sym__literalFloat]; STATE 1380 [sym__ppIf];
   STATE 6327 [sym__ppStatementBlock]; STATE 11840 [aux_sym_labeledStatement_repeat1];
   STATE 863 [aux_sym__statementsTr_repeat1]; STATE 6664 [aux_sym_literalString_repeat1];
   ACTIONS 397 [anon_sym_SEMI]; ACTIONS 399 [anon_sym_LBRACK]; ACTIONS 401 [anon_sym_LPAREN];
   ACTIONS 403 [aux_sym__literalString_token1]; ACTIONS 405 [anon_sym_POUND];
   ACTIONS 407 [aux_sym__literalInt_token1]; ACTIONS 409 [aux_sym__literalInt_token2;
   aux_sym__literalInt_token3]; ACTIONS 407 [aux_sym__literalFloat_token1];
   ACTIONS 411 [aux_sym_ppUsesBlock_token1]; ACTIONS 413 [sym_kAdd; sym_kSub];
   ACTIONS 415 [sym_kAt]; ACTIONS 417 [sym_kTrue; sym_kFalse]; ACTIONS 419 [sym_labelNumber];
   ACTIONS 3 [sym__space]; ACTIONS 5 [sym_ppDirective]; ACTIONS 3 [sym_comment];
   ACTIONS 417 [sym_ppFragmentExpr]; ACTIONS 397 [sym_ppFragmentStmt];
   ACTIONS 403 [sym__literalStringMultiline]; ACTIONS 421 [sym_identifier];
   ACTIONS 423 [sym_kSpecialize]; ACTIONS 427 [sym_kAsm]; ACTIONS 429 [sym_kBegin];
   ACTIONS 431 [sym_kCase]; ACTIONS 433 [sym_kConst]; ACTIONS 1695 [sym_kEnd];
   ACTIONS 437 [sym_kFor]; ACTIONS 439 [sym_kFunction]; ACTIONS 441 [sym_kGoto];
   ACTIONS 443 [sym_kIf]; ACTIONS 445 [sym_kInherited]; ACTIONS 417 [sym_kNil];
   ACTIONS 415 [sym_kNot]; ACTIONS 439 [sym_kProcedure]; ACTIONS 447 [sym_kRaise];
   ACTIONS 449 [sym_kRepeat]; ACTIONS 451 [sym_kString]; ACTIONS 453 [sym_kTry];
   ACTIONS 455 [sym_kVar]; ACTIONS 457 [sym_kWhile]; ACTIONS 459 [sym_kWith]].

(** State 261. *)
Definition ts_parse_table_261 : parse_row :=
  [STATE 6213 [sym_if]; STATE 6327 [sym_ifElse; sym_while; sym_repeat; sym_for; sym_foreach;
   sym_try; sym_case; sym_block; sym_asm; sym_with; sym_raise; sym_statement; sym_goto;
   sym__statement]; STATE 15991 [sym_ifTr; sym_ifElseTr; sym_whileTr; sym_repeatTr; sym_forTr;
   sym_foreachTr; sym_tryTr; sym_caseTr]; STATE 14251 [sym_blockTr]; STATE 15991 [sym_asmTr;
   sym_withTr; sym_raiseTr; sym_statementTr; sym_gotoTr; sym__statementTr];
   STATE 13915 [sym_assignment]; STATE 11785 [sym_varAssignDef]; STATE 13915 [sym_varDef;
   sym_constDef]; STATE 6166 [sym_label]; STATE 15991 [sym__statementsTr];
   STATE 15672 [sym_statementsTr]; STATE 8019 [sym__expr; sym_exprConditional];
   STATE 7478 [sym__ref; sym_lambda; sym_inherited; sym_exprDot; sym_exprDeref; sym_exprAs;
   sym_exprTpl; sym_exprSubscript; sym_exprCall]; STATE 8019 [sym_exprBinary; sym_exprUnary];
   STATE 7478 [sym_exprParens; sym_exprBrackets; sym__literal; sym_literalString];
   STATE 6664 [sym__literalString; sym_literalChar]; STATE 7478 [sym_literalNumber];
   STATE 7742 [sym__literalInt; sym__literalFloat]; STATE 1380 [sym__ppIf];
   STATE 6327 [sym__ppStatementBlock]; STATE 11840 [aux_sym_labeledStatement_repeat1];
   STATE 863 [aux_sym__statementsTr_repeat1]; STATE 6664 [aux_sym_literalString_repeat1];
   ACTIONS 397 [anon_sym_SEMI]; ACTIONS 399 [anon_sym_LBRACK]; ACTIONS 401 [anon_sym_LPAREN];
   ACTIONS 403 [aux_sym__literalString_token1]; ACTIONS 405 [anon_sym_POUND];
   ACTIONS 407 [aux_sym__literalInt_token1]; ACTIONS 409 [aux_sym__literalInt_token2;
   aux_sym__literalInt_token3]; ACTIONS 407 [aux_sym__literalFloat_token1];
   ACTIONS 411 [aux_sym_ppUsesBlock_token1]; ACTIONS 413 [sym_kAdd; sym_kSub];
   ACTIONS 415 [sym_kAt]; ACTIONS 417 [sym_kTrue; sym_kFalse]; ACTIONS 419 [sym_labelNumber];
   ACTIONS 3 [sym__space]; ACTIONS 5 [sym_ppDirective]; ACTIONS 3 [sym_comment];
   ACTIONS 417 [sym_ppFragmentExpr]; ACTIONS 397 [sym_ppFragmentStmt];
   ACTIONS 403 [sym__literalStringMultiline]; ACTIONS 421 [sym_identifier];
   ACTIONS 423 [sym_kSpecialize]; ACTIONS 427 [sym_kAsm]; ACTIONS 429 [sym_kBegin];
   ACTIONS 431 [sym_kCase]; ACTIONS 433 [sym_kConst]; ACTIONS 1697 [sym_kEnd];
   ACTIONS 437 [sym_kFor]; ACTIONS 439 [sym_kFunction]; ACTIONS 441 [sym_kGoto];
   ACTIONS 443 [sym_kIf]; ACTIONS 445 [sym_kInherited]; ACTIONS 417 [sym_kNil];
   ACTIONS 415 [sym_kNot]; ACTIONS 439 [sym_kProcedure]; ACTIONS 447 [sym_kRaise];
   ACTIONS 449 [sym_kRepeat]; ACTIONS 451 [sym_kString]; ACTIONS 453 [sym_kTry];
   ACTIONS 455 [sym_kVar]; ACTIONS 457 [sym_kWhile]; ACTIONS 459 [sym_kWith]].

(** State 262. *)
Definition ts_parse_table_262 : parse_row :=
  [STATE 6213 [sym_if]; STATE 6327 [sym_ifElse; sym_while; sym_repeat; sym_for; sym_foreach;
   sym_try; sym_case; sym_block; sym_asm; sym_with; sym_raise; sym_statement; sym_goto;
   sym__statement]; STATE 15743 [sym_ifTr; sym_ifElseTr; sym_whileTr; sym_repeatTr; sym_forTr;
   sym_foreachTr; sym_tryTr; sym_caseTr]; STATE 14251 [sym_blockTr]; STATE 15743 [sym_asmTr;
   sym_withTr; sym_raiseTr; sym_statementTr; sym_gotoTr; sym__statementTr];
   STATE 13915 [sym_assignment]; STATE 11785 [sym_varAssignDef]; STATE 13915 [sym_varDef;
   sym_constDef]; STATE 6166 [sym_label]; STATE 15743 [sym__statementsTr]; STATE 8019 [sym__expr;
   sym_exprConditional]; STATE 7478 [sym__ref; sym_lambda; sym_inherited; sym_exprDot;
   sym_exprDeref; sym_exprAs; sym_exprTpl; sym_exprSubscript; sym_exprCall];
   STATE 8019 [sym_exprBinary; sym_exprUnary]; STATE 7478 [sym_exprParens; sym_exprBrackets;
   sym__literal; sym_literalString]; STATE 6664 [sym__literalString; sym_literalChar];
   STATE 7478 [sym_literalNumber]; STATE 7742 [sym__literalInt; sym__literalFloat];
   STATE 1380 [sym__ppIf]; STATE 6327 [sym__ppStatementBlock];
   STATE 11840 [aux_sym_labeledStatement_repeat1]; STATE 863 [aux_sym__statementsTr_repeat1];
   STATE 6664 [aux_sym_literalString_repeat1]; ACTIONS 397 [anon_sym_SEMI];
   ACTIONS 1699 [anon_sym_COLON]; ACTIONS 399 [anon_sym_LBRACK]; ACTIONS 401 [anon_sym_LPAREN];
   ACTIONS 403 [aux_sym__literalString_token1]; ACTIONS 405 [anon_sym_POUND];
   ACTIONS 407 [aux_sym__literalInt_token1]; ACTIONS 409 [aux_sym__literalInt_token2;
   aux_sym__literalInt_token3]; ACTIONS 407 [aux_sym__literalFloat_token1];
   ACTIONS 411 [aux_sym_ppUsesBlock_token1]; ACTIONS 413 [sym_kAdd; sym_kSub];
   ACTIONS 415 [sym_kAt]; ACTIONS 417 [sym_kTrue; sym_kFalse]; ACTIONS 419 [sym_labelNumber];
   ACTIONS 3 [sym__space]; ACTIONS 5 [sym_ppDirective]; ACTIONS 3 [sym_comment];
   ACTIONS 417 [sym_ppFragmentExpr]; ACTIONS 397 [sym_ppFragmentStmt];
   ACTIONS 403 [sym__literalStringMultiline]; ACTIONS 421 [sym_identifier];
   ACTIONS 423 [sym_kSpecialize]; ACTIONS 427 [sym_kAsm]; ACTIONS 429 [sym_kBegin];
   ACTIONS 431 [sym_kCase]; ACTIONS 433 [sym_kConst]; ACTIONS 1701 [sym_kEnd];
   ACTIONS 437 [sym_kFor]; ACTIONS 439 [sym_kFunction]; ACTIONS 441 [sym_kGoto];
   ACTIONS 443 [sym_kIf]; ACTIONS 445 [sym_kInherited]; ACTIONS 417 [sym_kNil];
   ACTIONS 415 [sym_kNot]; ACTIONS 439 [sym_kProcedure]; ACTIONS 447 [sym_kRaise];
   ACTIONS 449 [sym_kRepeat]; ACTIONS 451 [sym_kString]; ACTIONS 453 [sym_kTry];
   ACTIONS 455 [sym_kVar]; ACTIONS 457 [sym_kWhile]; ACTIONS 459 [sym_kWith]].

(** State 263. *)
Definition ts_parse_table_263 : parse_row :=
  [STATE 6213 [sym_if]; STATE 6327 [sym_ifElse; sym_while; sym_repeat; sym_for; sym_foreach;
   sym_try; sym_case; sym_block; sym_asm; sym_with; sym_raise; sym_statement; sym_goto;
   sym__statement]; STATE 15787 [sym_ifTr; sym_ifElseTr; sym_whileTr; sym_repeatTr; sym_forTr;
   sym_foreachTr; sym_tryTr; sym_caseTr]; STATE 14251 [sym_blockTr]; STATE 15787 [sym_asmTr;
   sym_withTr; sym_raiseTr; sym_statementTr; sym_gotoTr; sym__statementTr];
   STATE 13915 [sym_assignment]; STATE 11785 [sym_varAssignDef]; STATE 13915 [sym_varDef;
   sym_constDef]; STATE 6166 [sym_label]; STATE 15787 [sym__statementsTr]; STATE 8019 [sym__expr;
   sym_exprConditional]; STATE 7478 [sym__ref; sym_lambda; sym_inherited; sym_exprDot;
   sym_exprDeref; sym_exprAs; sym_exprTpl; sym_exprSubscript; sym_exprCall];
   STATE 8019 [sym_exprBinary; sym_exprUnary]; STATE 7478 [sym_exprParens; sym_exprBrackets;
   sym__literal; sym_literalString]; STATE 6664 [sym__literalString; sym_literalChar];
   STATE 7478 [sym_literalNumber]; STATE 7742 [sym__literalInt; sym__literalFloat];
   STATE 1380 [sym__ppIf]; STATE 6327 [sym__ppStatementBlock];
   STATE 11840 [aux_sym_labeledStatement_repeat1]; STATE 863 [aux_sym__statementsTr_repeat1];
   STATE 6664 [aux_sym_literalString_repeat1]; ACTIONS 397 [anon_sym_SEMI];
   ACTIONS 1703 [anon_sym_COLON]; ACTIONS 399 [anon_sym_LBRACK]; ACTIONS 401 [anon_sym_LPAREN];
   ACTIONS 403 [aux_sym__literalString_token1]; ACTIONS 405 [anon_sym_POUND];
   ACTIONS 407 [aux_sym__literalInt_token1]; ACTIONS 409 [aux_sym__literalInt_token2;
   aux_sym__literalInt_token3]; ACTIONS 407 [aux_sym__literalFloat_token1];
   ACTIONS 411 [aux_sym_ppUsesBlock_token1]; ACTIONS 413 [sym_kAdd; sym_kSub];
   ACTIONS 415 [sym_kAt]; ACTIONS 417 [sym_kTrue; sym_kFalse]; ACTIONS 419 [sym_labelNumber];
   ACTIONS 3 [sym__space]; ACTIONS 5 [sym_ppDirective]; ACTIONS 3 [sym_comment];
   ACTIONS 417 [sym_ppFragmentExpr]; ACTIONS 397 [sym_ppFragmentStmt];
   ACTIONS 403 [sym__literalStringMultiline]; ACTIONS 421 [sym_identifier];
   ACTIONS 423 [sym_kSpecialize]; ACTIONS 427 [sym_kAsm]; ACTIONS 429 [sym_kBegin];
   ACTIONS 431 [sym_kCase]; ACTIONS 433 [sym_kConst]; ACTIONS 1705 [sym_kEnd];
   ACTIONS 437 [sym_kFor]; ACTIONS 439 [sym_kFunction]; ACTIONS 441 [sym_kGoto];
   ACTIONS 443 [sym_kIf]; ACTIONS 445 [sym_kInherited]; ACTIONS 417 [sym_kNil];
   ACTIONS 415 [sym_kNot]; ACTIONS 439 [sym_kProcedure]; ACTIONS 447 [sym_kRaise];
   ACTIONS 449 [sym_kRepeat]; ACTIONS 451 [sym_kString]; ACTIONS 453 [sym_kTry];
   ACTIONS 455 [sym_kVar]; ACTIONS 457 [sym_kWhile]; ACTIONS 459 [sym_kWith]].

(** State 264. *)
Definition ts_parse_table_264 : parse_row :=
  [STATE 6213 [sym_if]; STATE 6327 [sym_ifElse; sym_while; sym_repeat; sym_for; sym_foreach;
   sym_try; sym_case; sym_block; sym_asm; sym_with; sym_raise; sym_statement; sym_goto;
   sym__statement]; STATE 15806 [sym_ifTr; sym_ifElseTr; sym_whileTr; sym_repeatTr; sym_forTr;
   sym_foreachTr; sym_tryTr; sym_caseTr]; STATE 14251 [sym_blockTr]; STATE 15806 [sym_asmTr;
   sym_withTr; sym_raiseTr; sym_statementTr; sym_gotoTr; sym__statementTr];
   STATE 13915 [sym_assignment]; STATE 11785 [sym_varAssignDef]; STATE 13915 [sym_varDef;
   sym_constDef]; STATE 6166 [sym_label]; STATE 15806 [sym__statementsTr]; STATE 8019 [sym__expr;
   sym_exprConditional]; STATE 7478 [sym__ref; sym_lambda; sym_inherited; sym_exprDot;
   sym_exprDeref; sym_exprAs; sym_exprTpl; sym_exprSubscript; sym_exprCall];
   STATE 8019 [sym_exprBinary; sym_exprUnary]; STATE 7478 [sym_exprParens; sym_exprBrackets;
   sym__literal; sym_literalString]; STATE 6664 [sym__literalString; sym_literalChar];
   STATE 7478 [sym_literalNumber]; STATE 7742 [sym__literalInt; sym__literalFloat];
   STATE 1380 [sym__ppIf]; STATE 6327 [sym__ppStatementBlock];
   STATE 11840 [aux_sym_labeledStatement_repeat1]; STATE 863 [aux_sym__statementsTr_repeat1];
   STATE 6664 [aux_sym_literalString_repeat1]; ACTIONS 397 [anon_sym_SEMI];
   ACTIONS 1707 [anon_sym_COLON]; ACTIONS 399 [anon_sym_LBRACK]; ACTIONS 401 [anon_sym_LPAREN];
   ACTIONS 403 [aux_sym__literalString_token1]; ACTIONS 405 [anon_sym_POUND];
   ACTIONS 407 [aux_sym__literalInt_token1]; ACTIONS 409 [aux_sym__literalInt_token2;
   aux_sym__literalInt_token3]; ACTIONS 407 [aux_sym__literalFloat_token1];
   ACTIONS 411 [aux_sym_ppUsesBlock_token1]; ACTIONS 413 [sym_kAdd; sym_kSub];
   ACTIONS 415 [sym_kAt]; ACTIONS 417 [sym_kTrue; sym_kFalse]; ACTIONS 419 [sym_labelNumber];
   ACTIONS 3 [sym__space]; ACTIONS 5 [sym_ppDirective]; ACTIONS 3 [sym_comment];
   ACTIONS 417 [sym_ppFragmentExpr]; ACTIONS 397 [sym_ppFragmentStmt];
   ACTIONS 403 [sym__literalStringMultiline]; ACTIONS 421 [sym_identifier];
   ACTIONS 423 [sym_kSpecialize]; ACTIONS 427 [sym_kAsm]; ACTIONS 429 [sym_kBegin];
   ACTIONS 431 [sym_kCase]; ACTIONS 433 [sym_kConst]; ACTIONS 1709 [sym_kEnd];
   ACTIONS 437 [sym_kFor]; ACTIONS 439 [sym_kFunction]; ACTIONS 441 [sym_kGoto];
   ACTIONS 443 [sym_kIf]; ACTIONS 445 [sym_kInherited]; ACTIONS 417 [sym_kNil];
   ACTIONS 415 [sym_kNot]; ACTIONS 439 [sym_kProcedure]; ACTIONS 447 [sym_kRaise];
   ACTIONS 449 [sym_kRepeat]; ACTIONS 451 [sym_kString]; ACTIONS 453 [sym_kTry];
   ACTIONS 455 [sym_kVar]; ACTIONS 457 [sym_kWhile]; ACTIONS 459 [sym_kWith]].

(** State 265. *)
Definition ts_parse_table_265 : parse_row :=
  [STATE 6213 [sym_if]; STATE 6327 [sym_ifElse; sym_while; sym_repeat; sym_for; sym_foreach;
   sym_try; sym_case; sym_block; sym_asm; sym_with; sym_raise; sym_statement; sym_goto;
   sym__statement]; STATE 15991 [sym_ifTr; sym_ifElseTr; sym_whileTr; sym_repeatTr; sym_forTr;
   sym_foreachTr; sym_tryTr; sym_caseTr]; STATE 14251 [sym_blockTr]; STATE 15991 [sym_asmTr;
   sym_withTr; sym_raiseTr; sym_statementTr; sym_gotoTr; sym__statementTr];
   STATE 13915 [sym_assignment]; STATE 11785 [sym_varAssignDef]; STATE 13915 [sym_varDef;
   sym_constDef]; STATE 6166 [sym_label]; STATE 15991 [sym__statementsTr];
   STATE 14328 [sym_statementsTr]; STATE 8019 [sym__expr; sym_exprConditional];
   STATE 7478 [sym__ref; sym_lambda; sym_inherited; sym_exprDot; sym_exprDeref; sym_exprAs;
   sym_exprTpl; sym_exprSubscript; sym_exprCall]; STATE 8019 [sym_exprBinary; sym_exprUnary];
   STATE 7478 [sym_exprParens; sym_exprBrackets; sym__literal; sym_literalString];
   STATE 6664 [sym__literalString; sym_literalChar]; STATE 7478 [sym_literalNumber];
   STATE 7742 [sym__literalInt; sym__literalFloat]; STATE 1380 [sym__ppIf];
   STATE 6327 [sym__ppStatementBlock]; STATE 11840 [aux_sym_labeledStatement_repeat1];
   STATE 863 [aux_sym__statementsTr_repeat1]; STATE 6664 [aux_sym_literalString_repeat1];
   ACTIONS 397 [anon_sym_SEMI]; ACTIONS 399 [anon_sym_LBRACK]; ACTIONS 401 [anon_sym_LPAREN];
   ACTIONS 403 [aux_sym__literalString_token1]; ACTIONS 405 [anon_sym_POUND];
   ACTIONS 407 [aux_sym__literalInt_token1]; ACTIONS 409 [aux_sym__literalInt_token2;
   aux_sym__literalInt_token3]; ACTIONS 407 [aux_sym__literalFloat_token1];
   ACTIONS 411 [aux_sym_ppUsesBlock_token1]; ACTIONS 413 [sym_kAdd; sym_kSub];
   ACTIONS 415 [sym_kAt]; ACTIONS 417 [sym_kTrue; sym_kFalse]; ACTIONS 419 [sym_labelNumber];
   ACTIONS 3 [sym__space]; ACTIONS 5 [sym_ppDirective]; ACTIONS 3 [sym_comment];
   ACTIONS 417 [sym_ppFragmentExpr]; ACTIONS 397 [sym_ppFragmentStmt];
   ACTIONS 403 [sym__literalStringMultiline]; ACTIONS 421 [sym_identifier];
   ACTIONS 423 [sym_kSpecialize]; ACTIONS 427 [sym_kAsm]; ACTIONS 429 [sym_kBegin];
   ACTIONS 431 [sym_kCase]; ACTIONS 433 [sym_kConst]; ACTIONS 1711 [sym_kEnd];
   ACTIONS 437 [sym_kFor]; ACTIONS 439 [sym_kFunction]; ACTIONS 441 [sym_kGoto];
   ACTIONS 443 [sym_kIf]; ACTIONS 445 [sym_kInherited]; ACTIONS 417 [sym_kNil];
   ACTIONS 415 [sym_kNot]; ACTIONS 439 [sym_kProcedure]; ACTIONS 447 [sym_kRaise];
   ACTIONS 449 [sym_kRepeat]; ACTIONS 451 [sym_kString]; ACTIONS 453 [sym_kTry];
   ACTIONS 455 [sym_kVar]; ACTIONS 457 [sym_kWhile]; ACTIONS 459 [sym_kWith]].

(** State 266. *)
Definition ts_parse_table_266 : parse_row :=
  [STATE 6213 [sym_if]; STATE 6327 [sym_ifElse; sym_while; sym_repeat; sym_for; sym_foreach;
   sym_try; sym_case; sym_block; sym_asm; sym_with; sym_raise; sym_statement; sym_goto;
   sym__statement]; STATE 15991 [sym_ifTr; sym_ifElseTr; sym_whileTr; sym_repeatTr; sym_forTr;
   sym_foreachTr; sym_tryTr; sym_caseTr]; STATE 14251 [sym_blockTr]; STATE 15991 [sym_asmTr;
   sym_withTr; sym_raiseTr; sym_statementTr; sym_gotoTr; sym__statementTr];
   STATE 13915 [sym_assignment]; STATE 11785 [sym_varAssignDef]; STATE 13915 [sym_varDef;
   sym_constDef]; STATE 6166 [sym_label]; STATE 15991 [sym__statementsTr];
   STATE 14467 [sym_statementsTr]; STATE 8019 [sym__expr; sym_exprConditional];
   STATE 7478 [sym__ref; sym_lambda; sym_inherited; sym_exprDot; sym_exprDeref; sym_exprAs;
   sym_exprTpl; sym_exprSubscript; sym_exprCall]; STATE 8019 [sym_exprBinary; sym_exprUnary];
   STATE 7478 [sym_exprParens; sym_exprBrackets; sym__literal; sym_literalString];
   STATE 6664 [sym__literalString; sym_literalChar]; STATE 7478 [sym_literalNumber];
   STATE 7742 [sym__literalInt; sym__literalFloat]; STATE 1380 [sym__ppIf];
   STATE 6327 [sym__ppStatementBlock]; STATE 11840 [aux_sym_labeledStatement_repeat1];
   STATE 863 [aux_sym__statementsTr_repeat1]; STATE 6664 [aux_sym_literalString_repeat1];
   ACTIONS 397 [anon_sym_SEMI]; ACTIONS 399 [anon_sym_LBRACK]; ACTIONS 401 [anon_sym_LPAREN];
   ACTIONS 403 [aux_sym__literalString_token1]; ACTIONS 405 [anon_sym_POUND];
   ACTIONS 407 [aux_sym__literalInt_token1]; ACTIONS 409 [aux_sym__literalInt_token2;
   aux_sym__literalInt_token3]; ACTIONS 407 [aux_sym__literalFloat_token1];
   ACTIONS 411 [aux_sym_ppUsesBlock_token1]; ACTIONS 413 [sym_kAdd; sym_kSub];
   ACTIONS 415 [sym_kAt]; ACTIONS 417 [sym_kTrue; sym_kFalse]; ACTIONS 419 [sym_labelNumber];
   ACTIONS 3 [sym__space]; ACTIONS 5 [sym_ppDirective]; ACTIONS 3 [sym_comment];
   ACTIONS 417 [sym_ppFragmentExpr]; ACTIONS 397 [sym_ppFragmentStmt];
   ACTIONS 403 [sym__literalStringMultiline]; ACTIONS 421 [sym_identifier];
   ACTIONS 423 [sym_kSpecialize]; ACTIONS 427 [sym_kAsm]; ACTIONS 429 [sym_kBegin];
   ACTIONS 431 [sym_kCase]; ACTIONS 433 [sym_kConst]; ACTIONS 1713 [sym_kEnd];
   ACTIONS 437 [sym_kFor]; ACTIONS 439 [sym_kFunction]; ACTIONS 441 [sym_kGoto];
   ACTIONS 443 [sym_kIf]; ACTIONS 445 [sym_kInherited]; ACTIONS 417 [sym_kNil];
   ACTIONS 415 [sym_kNot]; ACTIONS 439 [sym_kProcedure]; ACTIONS 447 [sym_kRaise];
   ACTIONS 449 [sym_kRepeat]; ACTIONS 451 [sym_kString]; ACTIONS 453 [sym_kTry];
   ACTIONS 455 [sym_kVar]; ACTIONS 457 [sym_kWhile]; ACTIONS 459 [sym_kWith]].

(** State 267. *)
Definition ts_parse_table_267 : parse_row :=
  [STATE 6213 [sym_if]; STATE 6327 [sym_ifElse; sym_while; sym_repeat; sym_for; sym_foreach;
   sym_try; sym_case; sym_block; sym_asm; sym_with; sym_raise; sym_statement; sym_goto;
   sym__statement]; STATE 14539 [sym_ifTr; sym_ifElseTr; sym_whileTr; sym_repeatTr; sym_forTr;
   sym_foreachTr; sym_tryTr; sym_caseTr]; STATE 14251 [sym_blockTr]; STATE 14539 [sym_asmTr;
   sym_withTr; sym_raiseTr; sym_statementTr; sym_gotoTr; sym__statementTr];
   STATE 13915 [sym_assignment]; STATE 11785 [sym_varAssignDef]; STATE 13915 [sym_varDef;
   sym_constDef]; STATE 6166 [sym_label]; STATE 14539 [sym__statementsTr]; STATE 8019 [sym__expr;
   sym_exprConditional]; STATE 7478 [sym__ref; sym_lambda; sym_inherited; sym_exprDot;
   sym_exprDeref; sym_exprAs; sym_exprTpl; sym_exprSubscript; sym_exprCall];
   STATE 8019 [sym_exprBinary; sym_exprUnary]; STATE 7478 [sym_exprParens; sym_exprBrackets;
   sym__literal; sym_literalString]; STATE 6664 [sym__literalString; sym_literalChar];
   STATE 7478 [sym_literalNumber]; STATE 7742 [sym__literalInt; sym__literalFloat];
   STATE 1380 [sym__ppIf]; STATE 6327 [sym__ppStatementBlock];
   STATE 11840 [aux_sym_labeledStatement_repeat1]; STATE 863 [aux_sym__statementsTr_repeat1];
   STATE 6664 [aux_sym_literalString_repeat1]; ACTIONS 397 [anon_sym_SEMI];
   ACTIONS 1715 [anon_sym_COLON]; ACTIONS 399 [anon_sym_LBRACK]; ACTIONS 401 [anon_sym_LPAREN];
   ACTIONS 403 [aux_sym__literalString_token1]; ACTIONS 405 [anon_sym_POUND];
   ACTIONS 407 [aux_sym__literalInt_token1]; ACTIONS 409 [aux_sym__literalInt_token2;
   aux_sym__literalInt_token3]; ACTIONS 407 [aux_sym__literalFloat_token1];
   ACTIONS 411 [aux_sym_ppUsesBlock_token1]; ACTIONS 413 [sym_kAdd; sym_kSub];
   ACTIONS 415 [sym_kAt]; ACTIONS 417 [sym_kTrue; sym_kFalse]; ACTIONS 419 [sym_labelNumber];
   ACTIONS 3 [sym__space]; ACTIONS 5 [sym_ppDirective]; ACTIONS 3 [sym_comment];
   ACTIONS 417 [sym_ppFragmentExpr]; ACTIONS 397 [sym_ppFragmentStmt];
   ACTIONS 403 [sym__literalStringMultiline]; ACTIONS 421 [sym_identifier];
   ACTIONS 423 [sym_kSpecialize]; ACTIONS 427 [sym_kAsm]; ACTIONS 429 [sym_kBegin];
   ACTIONS 431 [sym_kCase]; ACTIONS 433 [sym_kConst]; ACTIONS 1717 [sym_kEnd];
   ACTIONS 437 [sym_kFor]; ACTIONS 439 [sym_kFunction]; ACTIONS 441 [sym_kGoto];
   ACTIONS 443 [sym_kIf]; ACTIONS 445 [sym_kInherited]; ACTIONS 417 [sym_kNil];
   ACTIONS 415 [sym_kNot]; ACTIONS 439 [sym_kProcedure]; ACTIONS 447 [sym_kRaise];
   ACTIONS 449 [sym_kRepeat]; ACTIONS 451 [sym_kString]; ACTIONS 453 [sym_kTry];
   ACTIONS 455 [sym_kVar]; ACTIONS 457 [sym_kWhile]; ACTIONS 459 [sym_kWith]].

(** State 268. *)
Definition ts_parse_table_268 : parse_row :=
  [STATE 6213 [sym_if]; STATE 6327 [sym_ifElse; sym_while; sym_repeat; sym_for; sym_foreach;
   sym_try; sym_case; sym_block; sym_asm; sym_with; sym_raise; sym_statement; sym_goto;
   sym__statement]; STATE 14606 [sym_ifTr; sym_ifElseTr; sym_whileTr; sym_repeatTr; sym_forTr;
   sym_foreachTr; sym_tryTr; sym_caseTr]; STATE 14251 [sym_blockTr]; STATE 14606 [sym_asmTr;
   sym_withTr; sym_raiseTr; sym_statementTr; sym_gotoTr; sym__statementTr];
   STATE 13915 [sym_assignment]; STATE 11785 [sym_varAssignDef]; STATE 13915 [sym_varDef;
   sym_constDef]; STATE 6166 [sym_label]; STATE 14606 [sym__statementsTr]; STATE 8019 [sym__expr;
   sym_exprConditional]; STATE 7478 [sym__ref; sym_lambda; sym_inherited; sym_exprDot;
   sym_exprDeref; sym_exprAs; sym_exprTpl; sym_exprSubscript; sym_exprCall];
   STATE 8019 [sym_exprBinary; sym_exprUnary]; STATE 7478 [sym_exprParens; sym_exprBrackets;
   sym__literal; sym_literalString]; STATE 6664 [sym__literalString; sym_literalChar];
   STATE 7478 [sym_literalNumber]; STATE 7742 [sym__literalInt; sym__literalFloat];
   STATE 1380 [sym__ppIf]; STATE 6327 [sym__ppStatementBlock];
   STATE 11840 [aux_sym_labeledStatement_repeat1]; STATE 863 [aux_sym__statementsTr_repeat1];
   STATE 6664 [aux_sym_literalString_repeat1]; ACTIONS 397 [anon_sym_SEMI];
   ACTIONS 1719 [anon_sym_COLON]; ACTIONS 399 [anon_sym_LBRACK]; ACTIONS 401 [anon_sym_LPAREN];
   ACTIONS 403 [aux_sym__literalString_token1]; ACTIONS 405 [anon_sym_POUND];
   ACTIONS 407 [aux_sym__literalInt_token1]; ACTIONS 409 [aux_sym__literalInt_token2;
   aux_sym__literalInt_token3]; ACTIONS 407 [aux_sym__literalFloat_token1];
   ACTIONS 411 [aux_sym_ppUsesBlock_token1]; ACTIONS 413 [sym_kAdd; sym_kSub];
   ACTIONS 415 [sym_kAt]; ACTIONS 417 [sym_kTrue; sym_kFalse]; ACTIONS 419 [sym_labelNumber];
   ACTIONS 3 [sym__space]; ACTIONS 5 [sym_ppDirective]; ACTIONS 3 [sym_comment];
   ACTIONS 417 [sym_ppFragmentExpr]; ACTIONS 397 [sym_ppFragmentStmt];
   ACTIONS 403 [sym__literalStringMultiline]; ACTIONS 421 [sym_identifier];
   ACTIONS 423 [sym_kSpecialize]; ACTIONS 427 [sym_kAsm]; ACTIONS 429 [sym_kBegin];
   ACTIONS 431 [sym_kCase]; ACTIONS 433 [sym_kConst]; ACTIONS 1721 [sym_kEnd];
   ACTIONS 437 [sym_kFor]; ACTIONS 439 [sym_kFunction]; ACTIONS 441 [sym_kGoto];
   ACTIONS 443 [sym_kIf]; ACTIONS 445 [sym_kInherited]; ACTIONS 417 [sym_kNil];
   ACTIONS 415 [sym_kNot]; ACTIONS 439 [sym_kProcedure]; ACTIONS 447 [sym_kRaise];
   ACTIONS 449 [sym_kRepeat]; ACTIONS 451 [sym_kString]; ACTIONS 453 [sym_kTry];
   ACTIONS 455 [sym_kVar]; ACTIONS 457 [sym_kWhile]; ACTIONS 459 [sym_kWith]].

(** State 269. *)
Definition ts_parse_table_269 : parse_row :=
  [STATE 6213 [sym_if]; STATE 6327 [sym_ifElse; sym_while; sym_repeat; sym_for; sym_foreach;
   sym_try; sym_case; sym_block; sym_asm; sym_with; sym_raise; sym_statement; sym_goto;
   sym__statement]; STATE 14624 [sym_ifTr; sym_ifElseTr; sym_whileTr; sym_repeatTr; sym_forTr;
   sym_foreachTr; sym_tryTr; sym_caseTr]; STATE 14251 [sym_blockTr]; STATE 14624 [sym_asmTr;
   sym_withTr; sym_raiseTr; sym_statementTr; sym_gotoTr; sym__statementTr];
   STATE 13915 [sym_assignment]; STATE 11785 [sym_varAssignDef]; STATE 13915 [sym_varDef;
   sym_constDef]; STATE 6166 [sym_label]; STATE 14624 [sym__statementsTr]; STATE 8019 [sym__expr;
   sym_exprConditional]; STATE 7478 [sym__ref; sym_lambda; sym_inherited; sym_exprDot;
   sym_exprDeref; sym_exprAs; sym_exprTpl; sym_exprSubscript; sym_exprCall];
   STATE 8019 [sym_exprBinary; sym_exprUnary]; STATE 7478 [sym_exprParens; sym_exprBrackets;
   sym__literal; sym_literalString]; STATE 6664 [sym__literalString; sym_literalChar];
   STATE 7478 [sym_literalNumber]; STATE 7742 [sym__literalInt; sym__literalFloat];
   STATE 1380 [sym__ppIf]; STATE 6327 [sym__ppStatementBlock];
   STATE 11840 [aux_sym_labeledStatement_repeat1]; STATE 863 [aux_sym__statementsTr_repeat1];
   STATE 6664 [aux_sym_literalString_repeat1]; ACTIONS 397 [anon_sym_SEMI];
   ACTIONS 1723 [anon_sym_COLON]; ACTIONS 399 [anon_sym_LBRACK]; ACTIONS 401 [anon_sym_LPAREN];
   ACTIONS 403 [aux_sym__literalString_token1]; ACTIONS 405 [anon_sym_POUND];
   ACTIONS 407 [aux_sym__literalInt_token1]; ACTIONS 409 [aux_sym__literalInt_token2;
   aux_sym__literalInt_token3]; ACTIONS 407 [aux_sym__literalFloat_token1];
   ACTIONS 411 [aux_sym_ppUsesBlock_token1]; ACTIONS 413 [sym_kAdd; sym_kSub];
   ACTIONS 415 [sym_kAt]; ACTIONS 417 [sym_kTrue; sym_kFalse]; ACTIONS 419 [sym_labelNumber];
   ACTIONS 3 [sym__space]; ACTIONS 5 [sym_ppDirective]; ACTIONS 3 [sym_comment];
   ACTIONS 417 [sym_ppFragmentExpr]; ACTIONS 397 [sym_ppFragmentStmt];
   ACTIONS 403 [sym__literalStringMultiline]; ACTIONS 421 [sym_identifier];
   ACTIONS 423 [sym_kSpecialize]; ACTIONS 427 [sym_kAsm]; ACTIONS 429 [sym_kBegin];
   ACTIONS 431 [sym_kCase]; ACTIONS 433 [sym_kConst]; ACTIONS 1725 [sym_kEnd];
   ACTIONS 437 [sym_kFor]; ACTIONS 439 [sym_kFunction]; ACTIONS 441 [sym_kGoto];
   ACTIONS 443 [sym_kIf]; ACTIONS 445 [sym_kInherited]; ACTIONS 417 [sym_kNil];
   ACTIONS 415 [sym_kNot]; ACTIONS 439 [sym_kProcedure]; ACTIONS 447 [sym_kRaise];
   ACTIONS 449 [sym_kRepeat]; ACTIONS 451 [sym_kString]; ACTIONS 453 [sym_kTry];
   ACTIONS 455 [sym_kVar]; ACTIONS 457 [sym_kWhile]; ACTIONS 459 [sym_kWith]].

(** State 270. *)
Definition ts_parse_table_270 : parse_row :=
  [STATE 2899 [sym__ppIf]; STATE 996 [sym__procAttributeNoExt];
   STATE 1005 [sym__procAttributesPp]; STATE 15262 [sym_procAttribute];
   STATE 337 [aux_sym__declProc_repeat1]; ACTIONS 1727 [anon_sym_SEMI; anon_sym_COMMA];
   ACTIONS 1729 [anon_sym_LBRACK]; ACTIONS 1732 [anon_sym_LPAREN];
   ACTIONS 1727 [aux_sym__literalString_token1; anon_sym_POUND];
   ACTIONS 1732 [aux_sym__literalInt_token1]; ACTIONS 1727 [aux_sym__literalInt_token2;
   aux_sym__literalInt_token3]; ACTIONS 1732 [aux_sym__literalFloat_token1];
   ACTIONS 1734 [aux_sym_ppUsesBlock_token1]; ACTIONS 1727 [aux_sym_ppUsesBlock_token2;
   aux_sym_ppUsesBlock_token3]; ACTIONS 1732 [sym_kAdd; sym_kSub]; ACTIONS 1727 [sym_kAt;
   sym_kTrue; sym_kFalse]; ACTIONS 3 [sym__space]; ACTIONS 5 [sym_ppDirective];
   ACTIONS 3 [sym_comment]; ACTIONS 1727 [sym_ppFragmentExpr; sym__literalStringMultiline;
   sym_identifier]; ACTIONS 1737 [sym_kDefault; sym_kNodefault]; ACTIONS 1740 [sym_kDispId];
   ACTIONS 1727 [sym_kGeneric; sym_kSpecialize; sym_kOperator]; ACTIONS 1743 [sym_kPublic];
   ACTIONS 1727 [sym_kForward]; ACTIONS 1737 [sym_kStatic; sym_kVirtual; sym_kAbstract;
   sym_kDynamic; sym_kOverride; sym_kOverload; sym_kReintroduce; sym_kStdcall; sym_kCdecl;
   sym_kCppdecl; sym_kPascal; sym_kRegister; sym_kMwpascal]; ACTIONS 1727 [sym_kExternal];
   ACTIONS 1746 [sym_kMessage]; ACTIONS 1749 [sym_kDeprecated]; ACTIONS 1737 [sym_kExperimental;
   sym_kPlatform; sym_kUnimplemented; sym_kCvar]; ACTIONS 1752 [sym_kExport];
   ACTIONS 1737 [sym_kFar; sym_kNear; sym_kSafecall; sym_kAssembler; sym_kNostackframe;
   sym_kInterrupt; sym_kNoreturn; sym_kIocheck; sym_kLocal; sym_kHardfloat; sym_kSoftfloat;
   sym_kMs_abi_default; sym_kMs_abi_cdecl; sym_kSaveregisters; sym_kSysv_abi_default;
   sym_kSysv_abi_cdecl; sym_kVectorcall; sym_kVarargs; sym_kWinapi]; ACTIONS 1755 [sym_kAlias];
   ACTIONS 1727 [sym_kAsm; sym_kBegin; sym_kCase; sym_kClass; sym_kConst; sym_kConstructor;
   sym_kDestructor; sym_kExports; sym_kFor; sym_kFunction; sym_kGoto; sym_kIf; sym_kInherited];
   ACTIONS 1016 [sym_kInline]; ACTIONS 1727 [sym_kLabel; sym_kNil; sym_kNot; sym_kProcedure;
   sym_kProperty; sym_kRaise; sym_kRepeat; sym_kResourcestring; sym_kString; sym_kThreadvar;
   sym_kTry; sym_kType; sym_kUses; sym_kVar; sym_kWhile; sym_kWith]].

(** State 271. *)
Definition ts_parse_table_271 : parse_row :=
  [STATE 2899 [sym__ppIf]; STATE 996 [sym__procAttributeNoExt];
   STATE 1005 [sym__procAttributesPp]; STATE 15262 [sym_procAttribute];
   STATE 183 [aux_sym__declProc_repeat1]; ACTIONS 1758 [anon_sym_SEMI; anon_sym_COMMA];
   ACTIONS 1760 [anon_sym_LBRACK]; ACTIONS 1763 [anon_sym_LPAREN];
   ACTIONS 1758 [aux_sym__literalString_token1; anon_sym_POUND];
   ACTIONS 1763 [aux_sym__literalInt_token1]; ACTIONS 1758 [aux_sym__literalInt_token2;
   aux_sym__literalInt_token3]; ACTIONS 1763 [aux_sym__literalFloat_token1];
   ACTIONS 1765 [aux_sym_ppUsesBlock_token1]; ACTIONS 1758 [aux_sym_ppUsesBlock_token2;
   aux_sym_ppUsesBlock_token3]; ACTIONS 1763 [sym_kAdd; sym_kSub]; ACTIONS 1758 [sym_kAt;
   sym_kTrue; sym_kFalse]; ACTIONS 3 [sym__space]; ACTIONS 5 [sym_ppDirective];
   ACTIONS 3 [sym_comment]; ACTIONS 1758 [sym_ppFragmentExpr; sym__literalStringMultiline;
   sym_identifier]; ACTIONS 1768 [sym_kDefault; sym_kNodefault]; ACTIONS 1771 [sym_kDispId];
   ACTIONS 1758 [sym_kGeneric; sym_kSpecialize; sym_kOperator]; ACTIONS 1774 [sym_kPublic];
   ACTIONS 1758 [sym_kForward]; ACTIONS 1768 [sym_kStatic; sym_kVirtual; sym_kAbstract;
   sym_kDynamic; sym_kOverride; sym_kOverload; sym_kReintroduce; sym_kStdcall; sym_kCdecl;
   sym_kCppdecl; sym_kPascal; sym_kRegister; sym_kMwpascal]; ACTIONS 1758 [sym_kExternal];
   ACTIONS 1777 [sym_kMessage]; ACTIONS 1780 [sym_kDeprecated]; ACTIONS 1768 [sym_kExperimental;
   sym_kPlatform; sym_kUnimplemented; sym_kCvar]; ACTIONS 1783 [sym_kExport];
   ACTIONS 1768 [sym_kFar; sym_kNear; sym_kSafecall; sym_kAssembler; sym_kNostackframe;
   sym_kInterrupt; sym_kNoreturn; sym_kIocheck; sym_kLocal; sym_kHardfloat; sym_kSoftfloat;
   sym_kMs_abi_default; sym_kMs_abi_cdecl; sym_kSaveregisters; sym_kSysv_abi_default;
   sym_kSysv_abi_cdecl; sym_kVectorcall; sym_kVarargs; sym_kWinapi]; ACTIONS 1786 [sym_kAlias];
   ACTIONS 1758 [sym_kAsm; sym_kBegin; sym_kCase; sym_kClass; sym_kConst; sym_kConstructor;
   sym_kDestructor; sym_kExports; sym_kFor; sym_kFunction; sym_kGoto; sym_kIf; sym_kInherited];
   ACTIONS 1016 [sym_kInline]; ACTIONS 1758 [sym_kLabel; sym_kNil; sym_kNot; sym_kProcedure;
   sym_kProperty; sym_kRaise; sym_kRepeat; sym_kResourcestring; sym_kString; sym_kThreadvar;
   sym_kTry; sym_kType; sym_kUses; sym_kVar; sym_kWhile; sym_kWith]].

(** State 272. *)
Definition ts_parse_table_272 : parse_row :=
  [STATE 6213 [sym_if]; STATE 6327 [sym_ifElse; sym_while; sym_repeat; sym_for; sym_foreach;
   sym_try; sym_case; sym_block; sym_asm; sym_with; sym_raise; sym_statement; sym_goto;
   sym__statement]; STATE 15991 [sym_ifTr; sym_ifElseTr; sym_whileTr; sym_repeatTr; sym_forTr;
   sym_foreachTr; sym_tryTr; sym_caseTr]; STATE 14251 [sym_blockTr]; STATE 15991 [sym_asmTr;
   sym_withTr; sym_raiseTr; sym_statementTr; sym_gotoTr; sym__statementTr];
   STATE 13915 [sym_assignment]; STATE 11785 [sym_varAssignDef]; STATE 13915 [sym_varDef;
   sym_constDef]; STATE 6166 [sym_label]; STATE 15991 [sym__statementsTr];
   STATE 14900 [sym_statementsTr]; STATE 8019 [sym__expr; sym_exprConditional];
   STATE 7478 [sym__ref; sym_lambda; sym_inherited; sym_exprDot; sym_exprDeref; sym_exprAs;
   sym_exprTpl; sym_exprSubscript; sym_exprCall]; STATE 8019 [sym_exprBinary; sym_exprUnary];
   STATE 7478 [sym_exprParens; sym_exprBrackets; sym__literal; sym_literalString];
   STATE 6664 [sym__literalString; sym_literalChar]; STATE 7478 [sym_literalNumber];
   STATE 7742 [sym__literalInt; sym__literalFloat]; STATE 1380 [sym__ppIf];
   STATE 6327 [sym__ppStatementBlock]; STATE 11840 [aux_sym_labeledStatement_repeat1];
   STATE 863 [aux_sym__statementsTr_repeat1]; STATE 6664 [aux_sym_literalString_repeat1];
   ACTIONS 397 [anon_sym_SEMI]; ACTIONS 399 [anon_sym_LBRACK]; ACTIONS 401 [anon_sym_LPAREN];
   ACTIONS 403 [aux_sym__literalString_token1]; ACTIONS 405 [anon_sym_POUND];
   ACTIONS 407 [aux_sym__literalInt_token1]; ACTIONS 409 [aux_sym__literalInt_token2;
   aux_sym__literalInt_token3]; ACTIONS 407 [aux_sym__literalFloat_token1];
   ACTIONS 411 [aux_sym_ppUsesBlock_token1]; ACTIONS 413 [sym_kAdd; sym_kSub];
   ACTIONS 415 [sym_kAt]; ACTIONS 417 [sym_kTrue; sym_kFalse]; ACTIONS 419 [sym_labelNumber];
   ACTIONS 3 [sym__space]; ACTIONS 5 [sym_ppDirective]; ACTIONS 3 [sym_comment];
   ACTIONS 417 [sym_ppFragmentExpr]; ACTIONS 397 [sym_ppFragmentStmt];
   ACTIONS 403 [sym__literalStringMultiline]; ACTIONS 421 [sym_identifier];
   ACTIONS 423 [sym_kSpecialize]; ACTIONS 427 [sym_kAsm]; ACTIONS 429 [sym_kBegin];
   ACTIONS 431 [sym_kCase]; ACTIONS 433 [sym_kConst]; ACTIONS 1789 [sym_kEnd];
   ACTIONS 437 [sym_kFor]; ACTIONS 439 [sym_kFunction]; ACTIONS 441 [sym_kGoto];
   ACTIONS 443 [sym_kIf]; ACTIONS 445 [sym_kInherited]; ACTIONS 417 [sym_kNil];
   ACTIONS 415 [sym_kNot]; ACTIONS 439 [sym_kProcedure]; ACTIONS 447 [sym_kRaise];
   ACTIONS 449 [sym_kRepeat]; ACTIONS 451 [sym_kString]; ACTIONS 453 [sym_kTry];
   ACTIONS 455 [sym_kVar]; ACTIONS 457 [sym_kWhile]; ACTIONS 459 [sym_kWith]].

(** State 273. *)
Definition ts_parse_table_273 : parse_row :=
  [STATE 2899 [sym__ppIf]; STATE 996 [sym__procAttributeNoExt];
   STATE 1005 [sym__procAttributesPp]; STATE 15262 [sym_procAttribute];
   STATE 183 [aux_sym__declProc_repeat1]; ACTIONS 1791 [anon_sym_SEMI; anon_sym_COMMA];
   ACTIONS 1793 [anon_sym_LBRACK]; ACTIONS 1796 [anon_sym_LPAREN];
   ACTIONS 1791 [aux_sym__literalString_token1; anon_sym_POUND];
   ACTIONS 1796 [aux_sym__literalInt_token1]; ACTIONS 1791 [aux_sym__literalInt_token2;
   aux_sym__literalInt_token3]; ACTIONS 1796 [aux_sym__literalFloat_token1];
   ACTIONS 1798 [aux_sym_ppUsesBlock_token1]; ACTIONS 1791 [aux_sym_ppUsesBlock_token2;
   aux_sym_ppUsesBlock_token3]; ACTIONS 1796 [sym_kAdd; sym_kSub]; ACTIONS 1791 [sym_kAt;
   sym_kTrue; sym_kFalse]; ACTIONS 3 [sym__space]; ACTIONS 5 [sym_ppDirective];
   ACTIONS 3 [sym_comment]; ACTIONS 1791 [sym_ppFragmentExpr; sym__literalStringMultiline;
   sym_identifier]; ACTIONS 1801 [sym_kDefault; sym_kNodefault]; ACTIONS 1804 [sym_kDispId];
   ACTIONS 1791 [sym_kGeneric; sym_kSpecialize; sym_kOperator]; ACTIONS 1807 [sym_kPublic];
   ACTIONS 1791 [sym_kForward]; ACTIONS 1801 [sym_kStatic; sym_kVirtual; sym_kAbstract;
   sym_kDynamic; sym_kOverride; sym_kOverload; sym_kReintroduce; sym_kStdcall; sym_kCdecl;
   sym_kCppdecl; sym_kPascal; sym_kRegister; sym_kMwpascal]; ACTIONS 1791 [sym_kExternal];
   ACTIONS 1810 [sym_kMessage]; ACTIONS 1813 [sym_kDeprecated]; ACTIONS 1801 [sym_kExperimental;
   sym_kPlatform; sym_kUnimplemented; sym_kCvar]; ACTIONS 1816 [sym_kExport];
   ACTIONS 1801 [sym_kFar; sym_kNear; sym_kSafecall; sym_kAssembler; sym_kNostackframe;
   sym_kInterrupt; sym_kNoreturn; sym_kIocheck; sym_kLocal; sym_kHardfloat; sym_kSoftfloat;
   sym_kMs_abi_default; sym_kMs_abi_cdecl; sym_kSaveregisters; sym_kSysv_abi_default;
   sym_kSysv_abi_cdecl; sym_kVectorcall; sym_kVarargs; sym_kWinapi]; ACTIONS 1819 [sym_kAlias];
   ACTIONS 1791 [sym_kAsm; sym_kBegin; sym_kCase; sym_kClass; sym_kConst; sym_kConstructor;
   sym_kDestructor; sym_kExports; sym_kFor; sym_kFunction; sym_kGoto; sym_kIf; sym_kInherited];
   ACTIONS 1016 [sym_kInline]; ACTIONS 1791 [sym_kLabel; sym_kNil; sym_kNot; sym_kProcedure;
   sym_kProperty; sym_kRaise; sym_kRepeat; sym_kResourcestring; sym_kString; sym_kThreadvar;
   sym_kTry; sym_kType; sym_kUses; sym_kVar; sym_kWhile; sym_kWith]].

(** State 274. *)
Definition ts_parse_table_274 : parse_row :=
  [STATE 6213 [sym_if]; STATE 6327 [sym_ifElse; sym_while; sym_repeat; sym_for; sym_foreach;
   sym_try; sym_case; sym_block; sym_asm; sym_with; sym_raise; sym_statement; sym_goto;
   sym__statement]; STATE 15991 [sym_ifTr; sym_ifElseTr; sym_whileTr; sym_repeatTr; sym_forTr;
   sym_foreachTr; sym_tryTr; sym_caseTr]; STATE 14251 [sym_blockTr]; STATE 15991 [sym_asmTr;
   sym_withTr; sym_raiseTr; sym_statementTr; sym_gotoTr; sym__statementTr];
   STATE 13915 [sym_assignment]; STATE 11785 [sym_varAssignDef]; STATE 13915 [sym_varDef;
   sym_constDef]; STATE 6166 [sym_label]; STATE 15991 [sym__statementsTr];
   STATE 14980 [sym_statementsTr]; STATE 8019 [sym__expr; sym_exprConditional];
   STATE 7478 [sym__ref; sym_lambda; sym_inherited; sym_exprDot; sym_exprDeref; sym_exprAs;
   sym_exprTpl; sym_exprSubscript; sym_exprCall]; STATE 8019 [sym_exprBinary; sym_exprUnary];
   STATE 7478 [sym_exprParens; sym_exprBrackets; sym__literal; sym_literalString];
   STATE 6664 [sym__literalString; sym_literalChar]; STATE 7478 [sym_literalNumber];
   STATE 7742 [sym__literalInt; sym__literalFloat]; STATE 1380 [sym__ppIf];
   STATE 6327 [sym__ppStatementBlock]; STATE 11840 [aux_sym_labeledStatement_repeat1];
   STATE 863 [aux_sym__statementsTr_repeat1]; STATE 6664 [aux_sym_literalString_repeat1];
   ACTIONS 397 [anon_sym_SEMI]; ACTIONS 399 [anon_sym_LBRACK]; ACTIONS 401 [anon_sym_LPAREN];
   ACTIONS 403 [aux_sym__literalString_token1]; ACTIONS 405 [anon_sym_POUND];
   ACTIONS 407 [aux_sym__literalInt_token1]; ACTIONS 409 [aux_sym__literalInt_token2;
   aux_sym__literalInt_token3]; ACTIONS 407 [aux_sym__literalFloat_token1];
   ACTIONS 411 [aux_sym_ppUsesBlock_token1]; ACTIONS 413 [sym_kAdd; sym_kSub];
   ACTIONS 415 [sym_kAt]; ACTIONS 417 [sym_kTrue; sym_kFalse]; ACTIONS 419 [sym_labelNumber];
   ACTIONS 3 [sym__space]; ACTIONS 5 [sym_ppDirective]; ACTIONS 3 [sym_comment];
   ACTIONS 417 [sym_ppFragmentExpr]; ACTIONS 397 [sym_ppFragmentStmt];
   ACTIONS 403 [sym__literalStringMultiline]; ACTIONS 421 [sym_identifier];
   ACTIONS 423 [sym_kSpecialize]; ACTIONS 427 [sym_kAsm]; ACTIONS 429 [sym_kBegin];
   ACTIONS 431 [sym_kCase]; ACTIONS 433 [sym_kConst]; ACTIONS 1822 [sym_kEnd];
   ACTIONS 437 [sym_kFor]; ACTIONS 439 [sym_kFunction]; ACTIONS 441 [sym_kGoto];
   ACTIONS 443 [sym_kIf]; ACTIONS 445 [sym_kInherited]; ACTIONS 417 [sym_kNil];
   ACTIONS 415 [sym_kNot]; ACTIONS 439 [sym_kProcedure]; ACTIONS 447 [sym_kRaise];
   ACTIONS 449 [sym_kRepeat]; ACTIONS 451 [sym_kString]; ACTIONS 453 [sym_kTry];
   ACTIONS 455 [sym_kVar]; ACTIONS 457 [sym_kWhile]; ACTIONS 459 [sym_kWith]].

(** State 275. *)
Definition ts_parse_table_275 : parse_row :=
  [STATE 6213 [sym_if]; STATE 6327 [sym_ifElse; sym_while; sym_repeat; sym_for; sym_foreach;
   sym_try; sym_case; sym_block; sym_asm; sym_with; sym_raise; sym_statement; sym_goto;
   sym__statement]; STATE 15016 [sym_ifTr; sym_ifElseTr; sym_whileTr; sym_repeatTr; sym_forTr;
   sym_foreachTr; sym_tryTr; sym_caseTr]; STATE 14251 [sym_blockTr]; STATE 15016 [sym_asmTr;
   sym_withTr; sym_raiseTr; sym_statementTr; sym_gotoTr; sym__statementTr];
   STATE 13915 [sym_assignment]; STATE 11785 [sym_varAssignDef]; STATE 13915 [sym_varDef;
   sym_constDef]; STATE 6166 [sym_label]; STATE 15016 [sym__statementsTr]; STATE 8019 [sym__expr;
   sym_exprConditional]; STATE 7478 [sym__ref; sym_lambda; sym_inherited; sym_exprDot;
   sym_exprDeref; sym_exprAs; sym_exprTpl; sym_exprSubscript; sym_exprCall];
   STATE 8019 [sym_exprBinary; sym_exprUnary]; STATE 7478 [sym_exprParens; sym_exprBrackets;
   sym__literal; sym_literalString]; STATE 6664 [sym__literalString; sym_literalChar];
   STATE 7478 [sym_literalNumber]; STATE 7742 [sym__literalInt; sym__literalFloat];
   STATE 1380 [sym__ppIf]; STATE 6327 [sym__ppStatementBlock];
   STATE 11840 [aux_sym_labeledStatement_repeat1]; STATE 863 [aux_sym__statementsTr_repeat1];
   STATE 6664 [aux_sym_literalString_repeat1]; ACTIONS 397 [anon_sym_SEMI];
   ACTIONS 1824 [anon_sym_COLON]; ACTIONS 399 [anon_sym_LBRACK]; ACTIONS 401 [anon_sym_LPAREN];
   ACTIONS 403 [aux_sym__literalString_token1]; ACTIONS 405 [anon_sym_POUND];
   ACTIONS 407 [aux_sym__literalInt_token1]; ACTIONS 409 [aux_sym__literalInt_token2;
   aux_sym__literalInt_token3]; ACTIONS 407 [aux_sym__literalFloat_token1];
   ACTIONS 411 [aux_sym_ppUsesBlock_token1]; ACTIONS 413 [sym_kAdd; sym_kSub];
   ACTIONS 415 [sym_kAt]; ACTIONS 417 [sym_kTrue; sym_kFalse]; ACTIONS 419 [sym_labelNumber];
   ACTIONS 3 [sym__space]; ACTIONS 5 [sym_ppDirective]; ACTIONS 3 [sym_comment];
   ACTIONS 417 [sym_ppFragmentExpr]; ACTIONS 397 [sym_ppFragmentStmt];
   ACTIONS 403 [sym__literalStringMultiline]; ACTIONS 421 [sym_identifier];
   ACTIONS 423 [sym_kSpecialize]; ACTIONS 427 [sym_kAsm]; ACTIONS 429 [sym_kBegin];
   ACTIONS 431 [sym_kCase]; ACTIONS 433 [sym_kConst]; ACTIONS 1826 [sym_kEnd];
   ACTIONS 437 [sym_kFor]; ACTIONS 439 [sym_kFunction]; ACTIONS 441 [sym_kGoto];
   ACTIONS 443 [sym_kIf]; ACTIONS 445 [sym_kInherited]; ACTIONS 417 [sym_kNil];
   ACTIONS 415 [sym_kNot]; ACTIONS 439 [sym_kProcedure]; ACTIONS 447 [sym_kRaise];
   ACTIONS 449 [sym_kRepeat]; ACTIONS 451 [sym_kString]; ACTIONS 453 [sym_kTry];
   ACTIONS 455 [sym_kVar]; ACTIONS 457 [sym_kWhile]; ACTIONS 459 [sym_kWith]].

(** State 276. *)
Definition ts_parse_table_276 : parse_row :=
  [STATE 6213 [sym_if]; STATE 6327 [sym_ifElse; sym_while; sym_repeat; sym_for; sym_foreach;
   sym_try; sym_case; sym_block; sym_asm; sym_with; sym_raise; sym_statement; sym_goto;
   sym__statement]; STATE 15036 [sym_ifTr; sym_ifElseTr; sym_whileTr; sym_repeatTr; sym_forTr;
   sym_foreachTr; sym_tryTr; sym_caseTr]; STATE 14251 [sym_blockTr]; STATE 15036 [sym_asmTr;
   sym_withTr; sym_raiseTr; sym_statementTr; sym_gotoTr; sym__statementTr];
   STATE 13915 [sym_assignment]; STATE 11785 [sym_varAssignDef]; STATE 13915 [sym_varDef;
   sym_constDef]; STATE 6166 [sym_label]; STATE 15036 [sym__statementsTr]; STATE 8019 [sym__expr;
   sym_exprConditional]; STATE 7478 [sym__ref; sym_lambda; sym_inherited; sym_exprDot;
   sym_exprDeref; sym_exprAs; sym_exprTpl; sym_exprSubscript; sym_exprCall];
   STATE 8019 [sym_exprBinary; sym_exprUnary]; STATE 7478 [sym_exprParens; sym_exprBrackets;
   sym__literal; sym_literalString]; STATE 6664 [sym__literalString; sym_literalChar];
   STATE 7478 [sym_literalNumber]; STATE 7742 [sym__literalInt; sym__literalFloat];
   STATE 1380 [sym__ppIf]; STATE 6327 [sym__ppStatementBlock];
   STATE 11840 [aux_sym_labeledStatement_repeat1]; STATE 863 [aux_sym__statementsTr_repeat1];
   STATE 6664 [aux_sym_literalString_repeat1]; ACTIONS 397 [anon_sym_SEMI];
   ACTIONS 1828 [anon_sym_COLON]; ACTIONS 399 [anon_sym_LBRACK]; ACTIONS 401 [anon_sym_LPAREN];
   ACTIONS 403 [aux_sym__literalString_token1]; ACTIONS 405 [anon_sym_POUND];
   ACTIONS 407 [aux_sym__literalInt_token1]; ACTIONS 409 [aux_sym__literalInt_token2;
   aux_sym__literalInt_token3]; ACTIONS 407 [aux_sym__literalFloat_token1];
   ACTIONS 411 [aux_sym_ppUsesBlock_token1]; ACTIONS 413 [sym_kAdd; sym_kSub];
   ACTIONS 415 [sym_kAt]; ACTIONS 417 [sym_kTrue; sym_kFalse]; ACTIONS 419 [sym_labelNumber];
   ACTIONS 3 [sym__space]; ACTIONS 5 [sym_ppDirective]; ACTIONS 3 [sym_comment];
   ACTIONS 417 [sym_ppFragmentExpr]; ACTIONS 397 [sym_ppFragmentStmt];
   ACTIONS 403 [sym__literalStringMultiline]; ACTIONS 421 [sym_identifier];
   ACTIONS 423 [sym_kSpecialize]; ACTIONS 427 [sym_kAsm]; ACTIONS 429 [sym_kBegin];
   ACTIONS 431 [sym_kCase]; ACTIONS 433 [sym_kConst]; ACTIONS 1830 [sym_kEnd];
   ACTIONS 437 [sym_kFor]; ACTIONS 439 [sym_kFunction]; ACTIONS 441 [sym_kGoto];
   ACTIONS 443 [sym_kIf]; ACTIONS 445 [sym_kInherited]; ACTIONS 417 [sym_kNil];
   ACTIONS 415 [sym_kNot]; ACTIONS 439 [sym_kProcedure]; ACTIONS 447 [sym_kRaise];
   ACTIONS 449 [sym_kRepeat]; ACTIONS 451 [sym_kString]; ACTIONS 453 [sym_kTry];
   ACTIONS 455 [sym_kVar]; ACTIONS 457 [sym_kWhile]; ACTIONS 459 [sym_kWith]].

(** State 277. *)
Definition ts_parse_table_277 : parse_row :=
  [STATE 6213 [sym_if]; STATE 6327 [sym_ifElse; sym_while; sym_repeat; sym_for; sym_foreach;
   sym_try; sym_case; sym_block; sym_asm; sym_with; sym_raise; sym_statement; sym_goto;
   sym__statement]; STATE 15041 [sym_ifTr; sym_ifElseTr; sym_whileTr; sym_repeatTr; sym_forTr;
   sym_foreachTr; sym_tryTr; sym_caseTr]; STATE 14251 [sym_blockTr]; STATE 15041 [sym_asmTr;
   sym_withTr; sym_raiseTr; sym_statementTr; sym_gotoTr; sym__statementTr];
   STATE 13915 [sym_assignment]; STATE 11785 [sym_varAssignDef]; STATE 13915 [sym_varDef;
   sym_constDef]; STATE 6166 [sym_label]; STATE 15041 [sym__statementsTr]; STATE 8019 [sym__expr;
   sym_exprConditional]; STATE 7478 [sym__ref; sym_lambda; sym_inherited; sym_exprDot;
   sym_exprDeref; sym_exprAs; sym_exprTpl; sym_exprSubscript; sym_exprCall];
   STATE 8019 [sym_exprBinary; sym_exprUnary]; STATE 7478 [sym_exprParens; sym_exprBrackets;
   sym__literal; sym_literalString]; STATE 6664 [sym__literalString; sym_literalChar];
   STATE 7478 [sym_literalNumber]; STATE 7742 [sym__literalInt; sym__literalFloat];
   STATE 1380 [sym__ppIf]; STATE 6327 [sym__ppStatementBlock];
   STATE 11840 [aux_sym_labeledStatement_repeat1]; STATE 863 [aux_sym__statementsTr_repeat1];
   STATE 6664 [aux_sym_literalString_repeat1]; ACTIONS 397 [anon_sym_SEMI];
   ACTIONS 1832 [anon_sym_COLON]; ACTIONS 399 [anon_sym_LBRACK]; ACTIONS 401 [anon_sym_LPAREN];
   ACTIONS 403 [aux_sym__literalString_token1]; ACTIONS 405 [anon_sym_POUND];
   ACTIONS 407 [aux_sym__literalInt_token1]; ACTIONS 409 [aux_sym__literalInt_token2;
   aux_sym__literalInt_token3]; ACTIONS 407 [aux_sym__literalFloat_token1];
   ACTIONS 411 [aux_sym_ppUsesBlock_token1]; ACTIONS 413 [sym_kAdd; sym_kSub];
   ACTIONS 415 [sym_kAt]; ACTIONS 417 [sym_kTrue; sym_kFalse]; ACTIONS 419 [sym_labelNumber];
   ACTIONS 3 [sym__space]; ACTIONS 5 [sym_ppDirective]; ACTIONS 3 [sym_comment];
   ACTIONS 417 [sym_ppFragmentExpr]; ACTIONS 397 [sym_ppFragmentStmt];
   ACTIONS 403 [sym__literalStringMultiline]; ACTIONS 421 [sym_identifier];
   ACTIONS 423 [sym_kSpecialize]; ACTIONS 427 [sym_kAsm]; ACTIONS 429 [sym_kBegin];
   ACTIONS 431 [sym_kCase]; ACTIONS 433 [sym_kConst]; ACTIONS 1834 [sym_kEnd];
   ACTIONS 437 [sym_kFor]; ACTIONS 439 [sym_kFunction]; ACTIONS 441 [sym_kGoto];
   ACTIONS 443 [sym_kIf]; ACTIONS 445 [sym_kInherited]; ACTIONS 417 [sym_kNil];
   ACTIONS 415 [sym_kNot]; ACTIONS 439 [sym_kProcedure]; ACTIONS 447 [sym_kRaise];
   ACTIONS 449 [sym_kRepeat]; ACTIONS 451 [sym_kString]; ACTIONS 453 [sym_kTry];
   ACTIONS 455 [sym_kVar]; ACTIONS 457 [sym_kWhile]; ACTIONS 459 [sym_kWith]].

(** State 278. *)
Definition ts_parse_table_278 : parse_row :=
  [STATE 2899 [sym__ppIf]; STATE 996 [sym__procAttributeNoExt];
   STATE 1005 [sym__procAttributesPp]; STATE 15262 [sym_procAttribute];
   STATE 349 [aux_sym__declProc_repeat1]; ACTIONS 1836 [anon_sym_SEMI; anon_sym_COMMA];
   ACTIONS 1838 [anon_sym_LBRACK]; ACTIONS 1841 [anon_sym_LPAREN];
   ACTIONS 1836 [aux_sym__literalString_token1; anon_sym_POUND];
   ACTIONS 1841 [aux_sym__literalInt_token1]; ACTIONS 1836 [aux_sym__literalInt_token2;
   aux_sym__literalInt_token3]; ACTIONS 1841 [aux_sym__literalFloat_token1];
   ACTIONS 1843 [aux_sym_ppUsesBlock_token1]; ACTIONS 1836 [aux_sym_ppUsesBlock_token2;
   aux_sym_ppUsesBlock_token3]; ACTIONS 1841 [sym_kAdd; sym_kSub]; ACTIONS 1836 [sym_kAt;
   sym_kTrue; sym_kFalse]; ACTIONS 3 [sym__space]; ACTIONS 5 [sym_ppDirective];
   ACTIONS 3 [sym_comment]; ACTIONS 1836 [sym_ppFragmentExpr; sym__literalStringMultiline;
   sym_identifier]; ACTIONS 1846 [sym_kDefault; sym_kNodefault]; ACTIONS 1849 [sym_kDispId];
   ACTIONS 1836 [sym_kGeneric; sym_kSpecialize; sym_kOperator]; ACTIONS 1852 [sym_kPublic];
   ACTIONS 1836 [sym_kForward]; ACTIONS 1846 [sym_kStatic; sym_kVirtual; sym_kAbstract;
   sym_kDynamic; sym_kOverride; sym_kOverload; sym_kReintroduce; sym_kStdcall; sym_kCdecl;
   sym_kCppdecl; sym_kPascal; sym_kRegister; sym_kMwpascal]; ACTIONS 1836 [sym_kExternal];
   ACTIONS 1855 [sym_kMessage]; ACTIONS 1858 [sym_kDeprecated]; ACTIONS 1846 [sym_kExperimental;
   sym_kPlatform; sym_kUnimplemented; sym_kCvar]; ACTIONS 1861 [sym_kExport];
   ACTIONS 1846 [sym_kFar; sym_kNear; sym_kSafecall; sym_kAssembler; sym_kNostackframe;
   sym_kInterrupt; sym_kNoreturn; sym_kIocheck; sym_kLocal; sym_kHardfloat; sym_kSoftfloat;
   sym_kMs_abi_default; sym_kMs_abi_cdecl; sym_kSaveregisters; sym_kSysv_abi_default;
   sym_kSysv_abi_cdecl; sym_kVectorcall; sym_kVarargs; sym_kWinapi]; ACTIONS 1864 [sym_kAlias];
   ACTIONS 1836 [sym_kAsm; sym_kBegin; sym_kCase; sym_kClass; sym_kConst; sym_kConstructor;
   sym_kDestructor; sym_kExports; sym_kFor; sym_kFunction; sym_kGoto; sym_kIf; sym_kInherited];
   ACTIONS 1016 [sym_kInline]; ACTIONS 1836 [sym_kLabel; sym_kNil; sym_kNot; sym_kProcedure;
   sym_kProperty; sym_kRaise; sym_kRepeat; sym_kResourcestring; sym_kString; sym_kThreadvar;
   sym_kTry; sym_kType; sym_kUses; sym_kVar; sym_kWhile; sym_kWith]].

(** State 279. *)
Definition ts_parse_table_279 : parse_row :=
  [STATE 6213 [sym_if]; STATE 6327 [sym_ifElse; sym_while; sym_repeat; sym_for; sym_foreach;
   sym_try; sym_case; sym_block; sym_asm; sym_with; sym_raise; sym_statement; sym_goto;
   sym__statement]; STATE 15991 [sym_ifTr; sym_ifElseTr; sym_whileTr; sym_repeatTr; sym_forTr;
   sym_foreachTr; sym_tryTr; sym_caseTr]; STATE 14251 [sym_blockTr]; STATE 15991 [sym_asmTr;
   sym_withTr; sym_raiseTr; sym_statementTr; sym_gotoTr; sym__statementTr];
   STATE 13915 [sym_assignment]; STATE 11785 [sym_varAssignDef]; STATE 13915 [sym_varDef;
   sym_constDef]; STATE 6166 [sym_label]; STATE 15991 [sym__statementsTr];
   STATE 15258 [sym_statementsTr]; STATE 8019 [sym__expr; sym_exprConditional];
   STATE 7478 [sym__ref; sym_lambda; sym_inherited; sym_exprDot; sym_exprDeref; sym_exprAs;
   sym_exprTpl; sym_exprSubscript; sym_exprCall]; STATE 8019 [sym_exprBinary; sym_exprUnary];
   STATE 7478 [sym_exprParens; sym_exprBrackets; sym__literal; sym_literalString];
   STATE 6664 [sym__literalString; sym_literalChar]; STATE 7478 [sym_literalNumber];
   STATE 7742 [sym__literalInt; sym__literalFloat]; STATE 1380 [sym__ppIf];
   STATE 6327 [sym__ppStatementBlock]; STATE 11840 [aux_sym_labeledStatement_repeat1];
   STATE 863 [aux_sym__statementsTr_repeat1]; STATE 6664 [aux_sym_literalString_repeat1];
   ACTIONS 397 [anon_sym_SEMI]; ACTIONS 399 [anon_sym_LBRACK]; ACTIONS 401 [anon_sym_LPAREN];
   ACTIONS 403 [aux_sym__literalString_token1]; ACTIONS 405 [anon_sym_POUND];
   ACTIONS 407 [aux_sym__literalInt_token1]; ACTIONS 409 [aux_sym__literalInt_token2;
   aux_sym__literalInt_token3]; ACTIONS 407 [aux_sym__literalFloat_token1];
   ACTIONS 411 [aux_sym_ppUsesBlock_token1]; ACTIONS 413 [sym_kAdd; sym_kSub];
   ACTIONS 415 [sym_kAt]; ACTIONS 417 [sym_kTrue; sym_kFalse]; ACTIONS 419 [sym_labelNumber];
   ACTIONS 3 [sym__space]; ACTIONS 5 [sym_ppDirective]; ACTIONS 3 [sym_comment];
   ACTIONS 417 [sym_ppFragmentExpr]; ACTIONS 397 [sym_ppFragmentStmt];
   ACTIONS 403 [sym__literalStringMultiline]; ACTIONS 421 [sym_identifier];
   ACTIONS 423 [sym_kSpecialize]; ACTIONS 427 [sym_kAsm]; ACTIONS 429 [sym_kBegin];
   ACTIONS 431 [sym_kCase]; ACTIONS 433 [sym_kConst]; ACTIONS 1867 [sym_kEnd];
   ACTIONS 437 [sym_kFor]; ACTIONS 439 [sym_kFunction]; ACTIONS 441 [sym_kGoto];
   ACTIONS 443 [sym_kIf]; ACTIONS 445 [sym_kInherited]; ACTIONS 417 [sym_kNil];
   ACTIONS 415 [sym_kNot]; ACTIONS 439 [sym_kProcedure]; ACTIONS 447 [sym_kRaise];
   ACTIONS 449 [sym_kRepeat]; ACTIONS 451 [sym_kString]; ACTIONS 453 [sym_kTry];
   ACTIONS 455 [sym_kVar]; ACTIONS 457 [sym_kWhile]; ACTIONS 459 [sym_kWith]].

(** State 280. *)
Definition ts_parse_table_280 : parse_row :=
  [STATE 6213 [sym_if]; STATE 6327 [sym_ifElse; sym_while; sym_repeat; sym_for; sym_foreach;
   sym_try; sym_case; sym_block; sym_asm; sym_with; sym_raise; sym_statement; sym_goto;
   sym__statement]; STATE 15991 [sym_ifTr; sym_ifElseTr; sym_whileTr; sym_repeatTr; sym_forTr;
   sym_foreachTr; sym_tryTr; sym_caseTr]; STATE 14251 [sym_blockTr]; STATE 15991 [sym_asmTr;
   sym_withTr; sym_raiseTr; sym_statementTr; sym_gotoTr; sym__statementTr];
   STATE 13915 [sym_assignment]; STATE 11785 [sym_varAssignDef]; STATE 13915 [sym_varDef;
   sym_constDef]; STATE 6166 [sym_label]; STATE 15991 [sym__statementsTr];
   STATE 15370 [sym_statementsTr]; STATE 8019 [sym__expr; sym_exprConditional];
   STATE 7478 [sym__ref; sym_lambda; sym_inherited; sym_exprDot; sym_exprDeref; sym_exprAs;
   sym_exprTpl; sym_exprSubscript; sym_exprCall]; STATE 8019 [sym_exprBinary; sym_exprUnary];
   STATE 7478 [sym_exprParens; sym_exprBrackets; sym__literal; sym_literalString];
   STATE 6664 [sym__literalString; sym_literalChar]; STATE 7478 [sym_literalNumber];
   STATE 7742 [sym__literalInt; sym__literalFloat]; STATE 1380 [sym__ppIf];
   STATE 6327 [sym__ppStatementBlock]; STATE 11840 [aux_sym_labeledStatement_repeat1];
   STATE 863 [aux_sym__statementsTr_repeat1]; STATE 6664 [aux_sym_literalString_repeat1];
   ACTIONS 397 [anon_sym_SEMI]; ACTIONS 399 [anon_sym_LBRACK]; ACTIONS 401 [anon_sym_LPAREN];
   ACTIONS 403 [aux_sym__literalString_token1]; ACTIONS 405 [anon_sym_POUND];
   ACTIONS 407 [aux_sym__literalInt_token1]; ACTIONS 409 [aux_sym__literalInt_token2;
   aux_sym__literalInt_token3]; ACTIONS 407 [aux_sym__literalFloat_token1];
   ACTIONS 411 [aux_sym_ppUsesBlock_token1]; ACTIONS 413 [sym_kAdd; sym_kSub];
   ACTIONS 415 [sym_kAt]; ACTIONS 417 [sym_kTrue; sym_kFalse]; ACTIONS 419 [sym_labelNumber];
   ACTIONS 3 [sym__space]; ACTIONS 5 [sym_ppDirective]; ACTIONS 3 [sym_comment];
   ACTIONS 417 [sym_ppFragmentExpr]; ACTIONS 397 [sym_ppFragmentStmt];
   ACTIONS 403 [sym__literalStringMultiline]; ACTIONS 421 [sym_identifier];
   ACTIONS 423 [sym_kSpecialize]; ACTIONS 427 [sym_kAsm]; ACTIONS 429 [sym_kBegin];
   ACTIONS 431 [sym_kCase]; ACTIONS 433 [sym_kConst]; ACTIONS 1869 [sym_kEnd];
   ACTIONS 437 [sym_kFor]; ACTIONS 439 [sym_kFunction]; ACTIONS 441 [sym_kGoto];
   ACTIONS 443 [sym_kIf]; ACTIONS 445 [sym_kInherited]; ACTIONS 417 [sym_kNil];
   ACTIONS 415 [sym_kNot]; ACTIONS 439 [sym_kProcedure]; ACTIONS 447 [sym_kRaise];
   ACTIONS 449 [sym_kRepeat]; ACTIONS 451 [sym_kString]; ACTIONS 453 [sym_kTry];
   ACTIONS 455 [sym_kVar]; ACTIONS 457 [sym_kWhile]; ACTIONS 459 [sym_kWith]].

(** State 281. *)
Definition ts_parse_table_281 : parse_row :=
  [STATE 6213 [sym_if]; STATE 6327 [sym_ifElse; sym_while; sym_repeat; sym_for; sym_foreach;
   sym_try; sym_case; sym_block; sym_asm; sym_with; sym_raise; sym_statement; sym_goto;
   sym__statement]; STATE 15413 [sym_ifTr; sym_ifElseTr; sym_whileTr; sym_repeatTr; sym_forTr;
   sym_foreachTr; sym_tryTr; sym_caseTr]; STATE 14251 [sym_blockTr]; STATE 15413 [sym_asmTr;
   sym_withTr; sym_raiseTr; sym_statementTr; sym_gotoTr; sym__statementTr];
   STATE 13915 [sym_assignment]; STATE 11785 [sym_varAssignDef]; STATE 13915 [sym_varDef;
   sym_constDef]; STATE 6166 [sym_label]; STATE 15413 [sym__statementsTr]; STATE 8019 [sym__expr;
   sym_exprConditional]; STATE 7478 [sym__ref; sym_lambda; sym_inherited; sym_exprDot;
   sym_exprDeref; sym_exprAs; sym_exprTpl; sym_exprSubscript; sym_exprCall];
   STATE 8019 [sym_exprBinary; sym_exprUnary]; STATE 7478 [sym_exprParens; sym_exprBrackets;
   sym__literal; sym_literalString]; STATE 6664 [sym__literalString; sym_literalChar];
   STATE 7478 [sym_literalNumber]; STATE 7742 [sym__literalInt; sym__literalFloat];
   STATE 1380 [sym__ppIf]; STATE 6327 [sym__ppStatementBlock];
   STATE 11840 [aux_sym_labeledStatement_repeat1]; STATE 863 [aux_sym__statementsTr_repeat1];
   STATE 6664 [aux_sym_literalString_repeat1]; ACTIONS 397 [anon_sym_SEMI];
   ACTIONS 1871 [anon_sym_COLON]; ACTIONS 399 [anon_sym_LBRACK]; ACTIONS 401 [anon_sym_LPAREN];
   ACTIONS 403 [aux_sym__literalString_token1]; ACTIONS 405 [anon_sym_POUND];
   ACTIONS 407 [aux_sym__literalInt_token1]; ACTIONS 409 [aux_sym__literalInt_token2;
   aux_sym__literalInt_token3]; ACTIONS 407 [aux_sym__literalFloat_token1];
   ACTIONS 411 [aux_sym_ppUsesBlock_token1]; ACTIONS 413 [sym_kAdd; sym_kSub];
   ACTIONS 415 [sym_kAt]; ACTIONS 417 [sym_kTrue; sym_kFalse]; ACTIONS 419 [sym_labelNumber];
   ACTIONS 3 [sym__space]; ACTIONS 5 [sym_ppDirective]; ACTIONS 3 [sym_comment];
   ACTIONS 417 [sym_ppFragmentExpr]; ACTIONS 397 [sym_ppFragmentStmt];
   ACTIONS 403 [sym__literalStringMultiline]; ACTIONS 421 [sym_identifier];
   ACTIONS 423 [sym_kSpecialize]; ACTIONS 427 [sym_kAsm]; ACTIONS 429 [sym_kBegin];
   ACTIONS 431 [sym_kCase]; ACTIONS 433 [sym_kConst]; ACTIONS 1873 [sym_kEnd];
   ACTIONS 437 [sym_kFor]; ACTIONS 439 [sym_kFunction]; ACTIONS 441 [sym_kGoto];
   ACTIONS 443 [sym_kIf]; ACTIONS 445 [sym_kInherited]; ACTIONS 417 [sym_kNil];
   ACTIONS 415 [sym_kNot]; ACTIONS 439 [sym_kProcedure]; ACTIONS 447 [sym_kRaise];
   ACTIONS 449 [sym_kRepeat]; ACTIONS 451 [sym_kString]; ACTIONS 453 [sym_kTry];
   ACTIONS 455 [sym_kVar]; ACTIONS 457 [sym_kWhile]; ACTIONS 459 [sym_kWith]].

(** State 282. *)
Definition ts_parse_table_282 : parse_row :=
  [STATE 6213 [sym_if]; STATE 6327 [sym_ifElse; sym_while; sym_repeat; sym_for; sym_foreach;
   sym_try; sym_case; sym_block; sym_asm; sym_with; sym_raise; sym_statement; sym_goto;
   sym__statement]; STATE 15437 [sym_ifTr; sym_ifElseTr; sym_whileTr; sym_repeatTr; sym_forTr;
   sym_foreachTr; sym_tryTr; sym_caseTr]; STATE 14251 [sym_blockTr]; STATE 15437 [sym_asmTr;
   sym_withTr; sym_raiseTr; sym_statementTr; sym_gotoTr; sym__statementTr];
   STATE 13915 [sym_assignment]; STATE 11785 [sym_varAssignDef]; STATE 13915 [sym_varDef;
   sym_constDef]; STATE 6166 [sym_label]; STATE 15437 [sym__statementsTr]; STATE 8019 [sym__expr;
   sym_exprConditional]; STATE 7478 [sym__ref; sym_lambda; sym_inherited; sym_exprDot;
   sym_exprDeref; sym_exprAs; sym_exprTpl; sym_exprSubscript; sym_exprCall];
   STATE 8019 [sym_exprBinary; sym_exprUnary]; STATE 7478 [sym_exprParens; sym_exprBrackets;
   sym__literal; sym_literalString]; STATE 6664 [sym__literalString; sym_literalChar];
   STATE 7478 [sym_literalNumber]; STATE 7742 [sym__literalInt; sym__literalFloat];
   STATE 1380 [sym__ppIf]; STATE 6327 [sym__ppStatementBlock];
   STATE 11840 [aux_sym_labeledStatement_repeat1]; STATE 863 [aux_sym__statementsTr_repeat1];
   STATE 6664 [aux_sym_literalString_repeat1]; ACTIONS 397 [anon_sym_SEMI];
   ACTIONS 1875 [anon_sym_COLON]; ACTIONS 399 [anon_sym_LBRACK]; ACTIONS 401 [anon_sym_LPAREN];
   ACTIONS 403 [aux_sym__literalString_token1]; ACTIONS 405 [anon_sym_POUND];
   ACTIONS 407 [aux_sym__literalInt_token1]; ACTIONS 409 [aux_sym__literalInt_token2;
   aux_sym__literalInt_token3]; ACTIONS 407 [aux_sym__literalFloat_token1];
   ACTIONS 411 [aux_sym_ppUsesBlock_token1]; ACTIONS 413 [sym_kAdd; sym_kSub];
   ACTIONS 415 [sym_kAt]; ACTIONS 417 [sym_kTrue; sym_kFalse]; ACTIONS 419 [sym_labelNumber];
   ACTIONS 3 [sym__space]; ACTIONS 5 [sym_ppDirective]; ACTIONS 3 [sym_comment];
   ACTIONS 417 [sym_ppFragmentExpr]; ACTIONS 397 [sym_ppFragmentStmt];
   ACTIONS 403 [sym__literalStringMultiline]; ACTIONS 421 [sym_identifier];
   ACTIONS 423 [sym_kSpecialize]; ACTIONS 427 [sym_kAsm]; ACTIONS 429 [sym_kBegin];
   ACTIONS 431 [sym_kCase]; ACTIONS 433 [sym_kConst]; ACTIONS 1877 [sym_kEnd];
   ACTIONS 437 [sym_kFor]; ACTIONS 439 [sym_kFunction]; ACTIONS 441 [sym_kGoto];
   ACTIONS 443 [sym_kIf]; ACTIONS 445 [sym_kInherited]; ACTIONS 417 [sym_kNil];
   ACTIONS 415 [sym_kNot]; ACTIONS 439 [sym_kProcedure]; ACTIONS 447 [sym_kRaise];
   ACTIONS 449 [sym_kRepeat]; ACTIONS 451 [sym_kString]; ACTIONS 453 [sym_kTry];
   ACTIONS 455 [sym_kVar]; ACTIONS 457 [sym_kWhile]; ACTIONS 459 [sym_kWith]].

(** State 283. *)
Definition ts_parse_table_283 : parse_row :=
  [STATE 6213 [sym_if]; STATE 6327 [sym_ifElse; sym_while; sym_repeat; sym_for; sym_foreach;
   sym_try; sym_case; sym_block; sym_asm; sym_with; sym_raise; sym_statement; sym_goto;
   sym__statement]; STATE 15441 [sym_ifTr; sym_ifElseTr; sym_whileTr; sym_repeatTr; sym_forTr;
   sym_foreachTr; sym_tryTr; sym_caseTr]; STATE 14251 [sym_blockTr]; STATE 15441 [sym_asmTr;
   sym_withTr; sym_raiseTr; sym_statementTr; sym_gotoTr; sym__statementTr];
   STATE 13915 [sym_assignment]; STATE 11785 [sym_varAssignDef]; STATE 13915 [sym_varDef;
   sym_constDef]; STATE 6166 [sym_label]; STATE 15441 [sym__statementsTr]; STATE 8019 [sym__expr;
   sym_exprConditional]; STATE 7478 [sym__ref; sym_lambda; sym_inherited; sym_exprDot;
   sym_exprDeref; sym_exprAs; sym_exprTpl; sym_exprSubscript; sym_exprCall];
   STATE 8019 [sym_exprBinary; sym_exprUnary]; STATE 7478 [sym_exprParens; sym_exprBrackets;
   sym__literal; sym_literalString]; STATE 6664 [sym__literalString; sym_literalChar];
   STATE 7478 [sym_literalNumber]; STATE 7742 [sym__literalInt; sym__literalFloat];
   STATE 1380 [sym__ppIf]; STATE 6327 [sym__ppStatementBlock];
   STATE 11840 [aux_sym_labeledStatement_repeat1]; STATE 863 [aux_sym__statementsTr_repeat1];
   STATE 6664 [aux_sym_literalString_repeat1]; ACTIONS 397 [anon_sym_SEMI];
   ACTIONS 1879 [anon_sym_COLON]; ACTIONS 399 [anon_sym_LBRACK]; ACTIONS 401 [anon_sym_LPAREN];
   ACTIONS 403 [aux_sym__literalString_token1]; ACTIONS 405 [anon_sym_POUND];
   ACTIONS 407 [aux_sym__literalInt_token1]; ACTIONS 409 [aux_sym__literalInt_token2;
   aux_sym__literalInt_token3]; ACTIONS 407 [aux_sym__literalFloat_token1];
   ACTIONS 411 [aux_sym_ppUsesBlock_token1]; ACTIONS 413 [sym_kAdd; sym_kSub];
   ACTIONS 415 [sym_kAt]; ACTIONS 417 [sym_kTrue; sym_kFalse]; ACTIONS 419 [sym_labelNumber];
   ACTIONS 3 [sym__space]; ACTIONS 5 [sym_ppDirective]; ACTIONS 3 [sym_comment];
   ACTIONS 417 [sym_ppFragmentExpr]; ACTIONS 397 [sym_ppFragmentStmt];
   ACTIONS 403 [sym__literalStringMultiline]; ACTIONS 421 [sym_identifier];
   ACTIONS 423 [sym_kSpecialize]; ACTIONS 427 [sym_kAsm]; ACTIONS 429 [sym_kBegin];
   ACTIONS 431 [sym_kCase]; ACTIONS 433 [sym_kConst]; ACTIONS 1881 [sym_kEnd];
   ACTIONS 437 [sym_kFor]; ACTIONS 439 [sym_kFunction]; ACTIONS 441 [sym_kGoto];
   ACTIONS 443 [sym_kIf]; ACTIONS 445 [sym_kInherited]; ACTIONS 417 [sym_kNil];
   ACTIONS 415 [sym_kNot]; ACTIONS 439 [sym_kProcedure]; ACTIONS 447 [sym_kRaise];
   ACTIONS 449 [sym_kRepeat]; ACTIONS 451 [sym_kString]; ACTIONS 453 [sym_kTry];
   ACTIONS 455 [sym_kVar]; ACTIONS 457 [sym_kWhile]; ACTIONS 459 [sym_kWith]].

(** State 284. *)
Definition ts_parse_table_284 : parse_row :=
  [STATE 2899 [sym__ppIf]; STATE 996 [sym__procAttributeNoExt];
   STATE 1005 [sym__procAttributesPp]; STATE 15262 [sym_procAttribute];
   STATE 183 [aux_sym__declProc_repeat1]; ACTIONS 1883 [anon_sym_SEMI; anon_sym_COMMA];
   ACTIONS 1885 [anon_sym_LBRACK]; ACTIONS 1888 [anon_sym_LPAREN];
   ACTIONS 1883 [aux_sym__literalString_token1; anon_sym_POUND];
   ACTIONS 1888 [aux_sym__literalInt_token1]; ACTIONS 1883 [aux_sym__literalInt_token2;
   aux_sym__literalInt_token3]; ACTIONS 1888 [aux_sym__literalFloat_token1];
   ACTIONS 1890 [aux_sym_ppUsesBlock_token1]; ACTIONS 1883 [aux_sym_ppUsesBlock_token2;
   aux_sym_ppUsesBlock_token3]; ACTIONS 1888 [sym_kAdd; sym_kSub]; ACTIONS 1883 [sym_kAt;
   sym_kTrue; sym_kFalse]; ACTIONS 3 [sym__space]; ACTIONS 5 [sym_ppDirective];
   ACTIONS 3 [sym_comment]; ACTIONS 1883 [sym_ppFragmentExpr; sym__literalStringMultiline;
   sym_identifier]; ACTIONS 1893 [sym_kDefault; sym_kNodefault]; ACTIONS 1896 [sym_kDispId];
   ACTIONS 1883 [sym_kGeneric; sym_kSpecialize; sym_kOperator]; ACTIONS 1899 [sym_kPublic];
   ACTIONS 1883 [sym_kForward]; ACTIONS 1893 [sym_kStatic; sym_kVirtual; sym_kAbstract;
   sym_kDynamic; sym_kOverride; sym_kOverload; sym_kReintroduce; sym_kStdcall; sym_kCdecl;
   sym_kCppdecl; sym_kPascal; sym_kRegister; sym_kMwpascal]; ACTIONS 1883 [sym_kExternal];
   ACTIONS 1902 [sym_kMessage]; ACTIONS 1905 [sym_kDeprecated]; ACTIONS 1893 [sym_kExperimental;
   sym_kPlatform; sym_kUnimplemented; sym_kCvar]; ACTIONS 1908 [sym_kExport];
   ACTIONS 1893 [sym_kFar; sym_kNear; sym_kSafecall; sym_kAssembler; sym_kNostackframe;
   sym_kInterrupt; sym_kNoreturn; sym_kIocheck; sym_kLocal; sym_kHardfloat; sym_kSoftfloat;
   sym_kMs_abi_default; sym_kMs_abi_cdecl; sym_kSaveregisters; sym_kSysv_abi_default;
   sym_kSysv_abi_cdecl; sym_kVectorcall; sym_kVarargs; sym_kWinapi]; ACTIONS 1911 [sym_kAlias];
   ACTIONS 1883 [sym_kAsm; sym_kBegin; sym_kCase; sym_kClass; sym_kConst; sym_kConstructor;
   sym_kDestructor; sym_kExports; sym_kFor; sym_kFunction; sym_kGoto; sym_kIf; sym_kInherited];
   ACTIONS 1016 [sym_kInline]; ACTIONS 1883 [sym_kLabel; sym_kNil; sym_kNot; sym_kProcedure;
   sym_kProperty; sym_kRaise; sym_kRepeat; sym_kResourcestring; sym_kString; sym_kThreadvar;
   sym_kTry; sym_kType; sym_kUses; sym_kVar; sym_kWhile; sym_kWith]].

(** State 285. *)
Definition ts_parse_table_285 : parse_row :=
  [STATE 2899 [sym__ppIf]; STATE 996 [sym__procAttributeNoExt];
   STATE 1005 [sym__procAttributesPp]; STATE 15262 [sym_procAttribute];
   STATE 368 [aux_sym__declProc_repeat1]; ACTIONS 1914 [anon_sym_SEMI; anon_sym_COMMA];
   ACTIONS 1916 [anon_sym_LBRACK]; ACTIONS 1919 [anon_sym_LPAREN];
   ACTIONS 1914 [aux_sym__literalString_token1; anon_sym_POUND];
   ACTIONS 1919 [aux_sym__literalInt_token1]; ACTIONS 1914 [aux_sym__literalInt_token2;
   aux_sym__literalInt_token3]; ACTIONS 1919 [aux_sym__literalFloat_token1];
   ACTIONS 1921 [aux_sym_ppUsesBlock_token1]; ACTIONS 1914 [aux_sym_ppUsesBlock_token2;
   aux_sym_ppUsesBlock_token3]; ACTIONS 1919 [sym_kAdd; sym_kSub]; ACTIONS 1914 [sym_kAt;
   sym_kTrue; sym_kFalse]; ACTIONS 3 [sym__space]; ACTIONS 5 [sym_ppDirective];
   ACTIONS 3 [sym_comment]; ACTIONS 1914 [sym_ppFragmentExpr; sym__literalStringMultiline;
   sym_identifier]; ACTIONS 1924 [sym_kDefault; sym_kNodefault]; ACTIONS 1927 [sym_kDispId];
   ACTIONS 1914 [sym_kGeneric; sym_kSpecialize; sym_kOperator]; ACTIONS 1930 [sym_kPublic];
   ACTIONS 1914 [sym_kForward]; ACTIONS 1924 [sym_kStatic; sym_kVirtual; sym_kAbstract;
   sym_kDynamic; sym_kOverride; sym_kOverload; sym_kReintroduce; sym_kStdcall; sym_kCdecl;
   sym_kCppdecl; sym_kPascal; sym_kRegister; sym_kMwpascal]; ACTIONS 1914 [sym_kExternal];
   ACTIONS 1933 [sym_kMessage]; ACTIONS 1936 [sym_kDeprecated]; ACTIONS 1924 [sym_kExperimental;
   sym_kPlatform; sym_kUnimplemented; sym_kCvar]; ACTIONS 1939 [sym_kExport];
   ACTIONS 1924 [sym_kFar; sym_kNear; sym_kSafecall; sym_kAssembler; sym_kNostackframe;
   sym_kInterrupt; sym_kNoreturn; sym_kIocheck; sym_kLocal; sym_kHardfloat; sym_kSoftfloat;
   sym_kMs_abi_default; sym_kMs_abi_cdecl; sym_kSaveregisters; sym_kSysv_abi_default;
   sym_kSysv_abi_cdecl; sym_kVectorcall; sym_kVarargs; sym_kWinapi]; ACTIONS 1942 [sym_kAlias];
   ACTIONS 1914 [sym_kAsm; sym_kBegin; sym_kCase; sym_kClass; sym_kConst; sym_kConstructor;
   sym_kDestructor; sym_kExports; sym_kFor; sym_kFunction; sym_kGoto; sym_kIf; sym_kInherited];
   ACTIONS 1016 [sym_kInline]; ACTIONS 1914 [sym_kLabel; sym_kNil; sym_kNot; sym_kProcedure;
   sym_kProperty; sym_kRaise; sym_kRepeat; sym_kResourcestring; sym_kString; sym_kThreadvar;
   sym_kTry; sym_kType; sym_kUses; sym_kVar; sym_kWhile; sym_kWith]].

(** State 286. *)
Definition ts_parse_table_286 : parse_row :=
  [STATE 6213 [sym_if]; STATE 6327 [sym_ifElse; sym_while; sym_repeat; sym_for; sym_foreach;
   sym_try; sym_case; sym_block; sym_asm; sym_with; sym_raise; sym_statement; sym_goto;
   sym__statement]; STATE 15991 [sym_ifTr; sym_ifElseTr; sym_whileTr; sym_repeatTr; sym_forTr;
   sym_foreachTr; sym_tryTr; sym_caseTr]; STATE 14251 [sym_blockTr]; STATE 15991 [sym_asmTr;
   sym_withTr; sym_raiseTr; sym_statementTr; sym_gotoTr; sym__statementTr];
   STATE 13915 [sym_assignment]; STATE 11785 [sym_varAssignDef]; STATE 13915 [sym_varDef;
   sym_constDef]; STATE 6166 [sym_label]; STATE 15991 [sym__statementsTr];
   STATE 15580 [sym_statementsTr]; STATE 8019 [sym__expr; sym_exprConditional];
   STATE 7478 [sym__ref; sym_lambda; sym_inherited; sym_exprDot; sym_exprDeref; sym_exprAs;
   sym_exprTpl; sym_exprSubscript; sym_exprCall]; STATE 8019 [sym_exprBinary; sym_exprUnary];
   STATE 7478 [sym_exprParens; sym_exprBrackets; sym__literal; sym_literalString];
   STATE 6664 [sym__literalString; sym_literalChar]; STATE 7478 [sym_literalNumber];
   STATE 7742 [sym__literalInt; sym__literalFloat]; STATE 1380 [sym__ppIf];
   STATE 6327 [sym__ppStatementBlock]; STATE 11840 [aux_sym_labeledStatement_repeat1];
   STATE 863 [aux_sym__statementsTr_repeat1]; STATE 6664 [aux_sym_literalString_repeat1];
   ACTIONS 397 [anon_sym_SEMI]; ACTIONS 399 [anon_sym_LBRACK]; ACTIONS 401 [anon_sym_LPAREN];
   ACTIONS 403 [aux_sym__literalString_token1]; ACTIONS 405 [anon_sym_POUND];
   ACTIONS 407 [aux_sym__literalInt_token1]; ACTIONS 409 [aux_sym__literalInt_token2;
   aux_sym__literalInt_token3]; ACTIONS 407 [aux_sym__literalFloat_token1];
   ACTIONS 411 [aux_sym_ppUsesBlock_token1]; ACTIONS 413 [sym_kAdd; sym_kSub];
   ACTIONS 415 [sym_kAt]; ACTIONS 417 [sym_kTrue; sym_kFalse]; ACTIONS 419 [sym_labelNumber];
   ACTIONS 3 [sym__space]; ACTIONS 5 [sym_ppDirective]; ACTIONS 3 [sym_comment];
   ACTIONS 417 [sym_ppFragmentExpr]; ACTIONS 397 [sym_ppFragmentStmt];
   ACTIONS 403 [sym__literalStringMultiline]; ACTIONS 421 [sym_identifier];
   ACTIONS 423 [sym_kSpecialize]; ACTIONS 427 [sym_kAsm]; ACTIONS 429 [sym_kBegin];
   ACTIONS 431 [sym_kCase]; ACTIONS 433 [sym_kConst]; ACTIONS 1945 [sym_kEnd];
   ACTIONS 437 [sym_kFor]; ACTIONS 439 [sym_kFunction]; ACTIONS 441 [sym_kGoto];
   ACTIONS 443 [sym_kIf]; ACTIONS 445 [sym_kInherited]; ACTIONS 417 [sym_kNil];
   ACTIONS 415 [sym_kNot]; ACTIONS 439 [sym_kProcedure]; ACTIONS 447 [sym_kRaise];
   ACTIONS 449 [sym_kRepeat]; ACTIONS 451 [sym_kString]; ACTIONS 453 [sym_kTry];
   ACTIONS 455 [sym_kVar]; ACTIONS 457 [sym_kWhile]; ACTIONS 459 [sym_kWith]].

(** State 287. *)
Definition ts_parse_table_287 : parse_row :=
  [STATE 2899 [sym__ppIf]; STATE 996 [sym__procAttributeNoExt];
   STATE 1005 [sym__procAttributesPp]; STATE 15262 [sym_procAttribute];
   STATE 370 [aux_sym__declProc_repeat1]; ACTIONS 1947 [anon_sym_SEMI; anon_sym_COMMA];
   ACTIONS 1949 [anon_sym_LBRACK]; ACTIONS 1952 [anon_sym_LPAREN];
   ACTIONS 1947 [aux_sym__literalString_token1; anon_sym_POUND];
   ACTIONS 1952 [aux_sym__literalInt_token1]; ACTIONS 1947 [aux_sym__literalInt_token2;
   aux_sym__literalInt_token3]; ACTIONS 1952 [aux_sym__literalFloat_token1];
   ACTIONS 1954 [aux_sym_ppUsesBlock_token1]; ACTIONS 1947 [aux_sym_ppUsesBlock_token2;
   aux_sym_ppUsesBlock_token3]; ACTIONS 1952 [sym_kAdd; sym_kSub]; ACTIONS 1947 [sym_kAt;
   sym_kTrue; sym_kFalse]; ACTIONS 3 [sym__space]; ACTIONS 5 [sym_ppDirective];
   ACTIONS 3 [sym_comment]; ACTIONS 1947 [sym_ppFragmentExpr; sym__literalStringMultiline;
   sym_identifier]; ACTIONS 1957 [sym_kDefault; sym_kNodefault]; ACTIONS 1960 [sym_kDispId];
   ACTIONS 1947 [sym_kGeneric; sym_kSpecialize; sym_kOperator]; ACTIONS 1963 [sym_kPublic];
   ACTIONS 1947 [sym_kForward]; ACTIONS 1957 [sym_kStatic; sym_kVirtual; sym_kAbstract;
   sym_kDynamic; sym_kOverride; sym_kOverload; sym_kReintroduce; sym_kStdcall; sym_kCdecl;
   sym_kCppdecl; sym_kPascal; sym_kRegister; sym_kMwpascal]; ACTIONS 1947 [sym_kExternal];
   ACTIONS 1966 [sym_kMessage]; ACTIONS 1969 [sym_kDeprecated]; ACTIONS 1957 [sym_kExperimental;
   sym_kPlatform; sym_kUnimplemented; sym_kCvar]; ACTIONS 1972 [sym_kExport];
   ACTIONS 1957 [sym_kFar; sym_kNear; sym_kSafecall; sym_kAssembler; sym_kNostackframe;
   sym_kInterrupt; sym_kNoreturn; sym_kIocheck; sym_kLocal; sym_kHardfloat; sym_kSoftfloat;
   sym_kMs_abi_default; sym_kMs_abi_cdecl; sym_kSaveregisters; sym_kSysv_abi_default;
   sym_kSysv_abi_cdecl; sym_kVectorcall; sym_kVarargs; sym_kWinapi]; ACTIONS 1975 [sym_kAlias];
   ACTIONS 1947 [sym_kAsm; sym_kBegin; sym_kCase; sym_kClass; sym_kConst; sym_kConstructor;
   sym_kDestructor; sym_kExports; sym_kFor; sym_kFunction; sym_kGoto; sym_kIf; sym_kInherited];
   ACTIONS 1016 [sym_kInline]; ACTIONS 1947 [sym_kLabel; sym_kNil; sym_kNot; sym_kProcedure;
   sym_kProperty; sym_kRaise; sym_kRepeat; sym_kResourcestring; sym_kString; sym_kThreadvar;
   sym_kTry; sym_kType; sym_kUses; sym_kVar; sym_kWhile; sym_kWith]].

(** State 288. *)
Definition ts_parse_table_288 : parse_row :=
  [STATE 6213 [sym_if]; STATE 6327 [sym_ifElse; sym_while; sym_repeat; sym_for; sym_foreach;
   sym_try; sym_case; sym_block; sym_asm; sym_with; sym_raise; sym_statement; sym_goto;
   sym__statement]; STATE 15991 [sym_ifTr; sym_ifElseTr; sym_whileTr; sym_repeatTr; sym_forTr;
   sym_foreachTr; sym_tryTr; sym_caseTr]; STATE 14251 [sym_blockTr]; STATE 15991 [sym_asmTr;
   sym_withTr; sym_raiseTr; sym_statementTr; sym_gotoTr; sym__statementTr];
   STATE 13915 [sym_assignment]; STATE 11785 [sym_varAssignDef]; STATE 13915 [sym_varDef;
   sym_constDef]; STATE 6166 [sym_label]; STATE 15991 [sym__statementsTr];
   STATE 15660 [sym_statementsTr]; STATE 8019 [sym__expr; sym_exprConditional];
   STATE 7478 [sym__ref; sym_lambda; sym_inherited; sym_exprDot; sym_exprDeref; sym_exprAs;
   sym_exprTpl; sym_exprSubscript; sym_exprCall]; STATE 8019 [sym_exprBinary; sym_exprUnary];
   STATE 7478 [sym_exprParens; sym_exprBrackets; sym__literal; sym_literalString];
   STATE 6664 [sym__literalString; sym_literalChar]; STATE 7478 [sym_literalNumber];
   STATE 7742 [sym__literalInt; sym__literalFloat]; STATE 1380 [sym__ppIf];
   STATE 6327 [sym__ppStatementBlock]; STATE 11840 [aux_sym_labeledStatement_repeat1];
   STATE 863 [aux_sym__statementsTr_repeat1]; STATE 6664 [aux_sym_literalString_repeat1];
   ACTIONS 397 [anon_sym_SEMI]; ACTIONS 399 [anon_sym_LBRACK]; ACTIONS 401 [anon_sym_LPAREN];
   ACTIONS 403 [aux_sym__literalString_token1]; ACTIONS 405 [anon_sym_POUND];
   ACTIONS 407 [aux_sym__literalInt_token1]; ACTIONS 409 [aux_sym__literalInt_token2;
   aux_sym__literalInt_token3]; ACTIONS 407 [aux_sym__literalFloat_token1];
   ACTIONS 411 [aux_sym_ppUsesBlock_token1]; ACTIONS 413 [sym_kAdd; sym_kSub];
   ACTIONS 415 [sym_kAt]; ACTIONS 417 [sym_kTrue; sym_kFalse]; ACTIONS 419 [sym_labelNumber];
   ACTIONS 3 [sym__space]; ACTIONS 5 [sym_ppDirective]; ACTIONS 3 [sym_comment];
   ACTIONS 417 [sym_ppFragmentExpr]; ACTIONS 397 [sym_ppFragmentStmt];
   ACTIONS 403 [sym__literalStringMultiline]; ACTIONS 421 [sym_identifier];
   ACTIONS 423 [sym_kSpecialize]; ACTIONS 427 [sym_kAsm]; ACTIONS 429 [sym_kBegin];
   ACTIONS 431 [sym_kCase]; ACTIONS 433 [sym_kConst]; ACTIONS 1978 [sym_kEnd];
   ACTIONS 437 [sym_kFor]; ACTIONS 439 [sym_kFunction]; ACTIONS 441 [sym_kGoto];
   ACTIONS 443 [sym_kIf]; ACTIONS 445 [sym_kInherited]; ACTIONS 417 [sym_kNil];
   ACTIONS 415 [sym_kNot]; ACTIONS 439 [sym_kProcedure]; ACTIONS 447 [sym_kRaise];
   ACTIONS 449 [sym_kRepeat]; ACTIONS 451 [sym_kString]; ACTIONS 453 [sym_kTry];
   ACTIONS 455 [sym_kVar]; ACTIONS 457 [sym_kWhile]; ACTIONS 459 [sym_kWith]].

(** State 289. *)
Definition ts_parse_table_289 : parse_row :=
  [STATE 6213 [sym_if]; STATE 6327 [sym_ifElse; sym_while; sym_repeat; sym_for; sym_foreach;
   sym_try; sym_case; sym_block; sym_asm; sym_with; sym_raise; sym_statement; sym_goto;
   sym__statement]; STATE 15712 [sym_ifTr; sym_ifElseTr; sym_whileTr; sym_repeatTr; sym_forTr;
   sym_foreachTr; sym_tryTr; sym_caseTr]; STATE 14251 [sym_blockTr]; STATE 15712 [sym_asmTr;
   sym_withTr; sym_raiseTr; sym_statementTr; sym_gotoTr; sym__statementTr];
   STATE 13915 [sym_assignment]; STATE 11785 [sym_varAssignDef]; STATE 13915 [sym_varDef;
   sym_constDef]; STATE 6166 [sym_label]; STATE 15712 [sym__statementsTr]; STATE 8019 [sym__expr;
   sym_exprConditional]; STATE 7478 [sym__ref; sym_lambda; sym_inherited; sym_exprDot;
   sym_exprDeref; sym_exprAs; sym_exprTpl; sym_exprSubscript; sym_exprCall];
   STATE 8019 [sym_exprBinary; sym_exprUnary]; STATE 7478 [sym_exprParens; sym_exprBrackets;
   sym__literal; sym_literalString]; STATE 6664 [sym__literalString; sym_literalChar];
   STATE 7478 [sym_literalNumber]; STATE 7742 [sym__literalInt; sym__literalFloat];
   STATE 1380 [sym__ppIf]; STATE 6327 [sym__ppStatementBlock];
   STATE 11840 [aux_sym_labeledStatement_repeat1]; STATE 863 [aux_sym__statementsTr_repeat1];
   STATE 6664 [aux_sym_literalString_repeat1]; ACTIONS 397 [anon_sym_SEMI];
   ACTIONS 1980 [anon_sym_COLON]; ACTIONS 399 [anon_sym_LBRACK]; ACTIONS 401 [anon_sym_LPAREN];
   ACTIONS 403 [aux_sym__literalString_token1]; ACTIONS 405 [anon_sym_POUND];
   ACTIONS 407 [aux_sym__literalInt_token1]; ACTIONS 409 [aux_sym__literalInt_token2;
   aux_sym__literalInt_token3]; ACTIONS 407 [aux_sym__literalFloat_token1];
   ACTIONS 411 [aux_sym_ppUsesBlock_token1]; ACTIONS 413 [sym_kAdd; sym_kSub];
   ACTIONS 415 [sym_kAt]; ACTIONS 417 [sym_kTrue; sym_kFalse]; ACTIONS 419 [sym_labelNumber];
   ACTIONS 3 [sym__space]; ACTIONS 5 [sym_ppDirective]; ACTIONS 3 [sym_comment];
   ACTIONS 417 [sym_ppFragmentExpr]; ACTIONS 397 [sym_ppFragmentStmt];
   ACTIONS 403 [sym__literalStringMultiline]; ACTIONS 421 [sym_identifier];
   ACTIONS 423 [sym_kSpecialize]; ACTIONS 427 [sym_kAsm]; ACTIONS 429 [sym_kBegin];
   ACTIONS 431 [sym_kCase]; ACTIONS 433 [sym_kConst]; ACTIONS 1982 [sym_kEnd];
   ACTIONS 437 [sym_kFor]; ACTIONS 439 [sym_kFunction]; ACTIONS 441 [sym_kGoto];
   ACTIONS 443 [sym_kIf]; ACTIONS 445 [sym_kInherited]; ACTIONS 417 [sym_kNil];
   ACTIONS 415 [sym_kNot]; ACTIONS 439 [sym_kProcedure]; ACTIONS 447 [sym_kRaise];
   ACTIONS 449 [sym_kRepeat]; ACTIONS 451 [sym_kString]; ACTIONS 453 [sym_kTry];
   ACTIONS 455 [sym_kVar]; ACTIONS 457 [sym_kWhile]; ACTIONS 459 [sym_kWith]].

(** State 290. *)
Definition ts_parse_table_290 : parse_row :=
  [STATE 6213 [sym_if]; STATE 6327 [sym_ifElse; sym_while; sym_repeat; sym_for; sym_foreach;
   sym_try; sym_case; sym_block; sym_asm; sym_with; sym_raise; sym_statement; sym_goto;
   sym__statement]; STATE 15728 [sym_ifTr; sym_ifElseTr; sym_whileTr; sym_repeatTr; sym_forTr;
   sym_foreachTr; sym_tryTr; sym_caseTr]; STATE 14251 [sym_blockTr]; STATE 15728 [sym_asmTr;
   sym_withTr; sym_raiseTr; sym_statementTr; sym_gotoTr; sym__statementTr];
   STATE 13915 [sym_assignment]; STATE 11785 [sym_varAssignDef]; STATE 13915 [sym_varDef;
   sym_constDef]; STATE 6166 [sym_label]; STATE 15728 [sym__statementsTr]; STATE 8019 [sym__expr;
   sym_exprConditional]; STATE 7478 [sym__ref; sym_lambda; sym_inherited; sym_exprDot;
   sym_exprDeref; sym_exprAs; sym_exprTpl; sym_exprSubscript; sym_exprCall];
   STATE 8019 [sym_exprBinary; sym_exprUnary]; STATE 7478 [sym_exprParens; sym_exprBrackets;
   sym__literal; sym_literalString]; STATE 6664 [sym__literalString; sym_literalChar];
   STATE 7478 [sym_literalNumber]; STATE 7742 [sym__literalInt; sym__literalFloat];
   STATE 1380 [sym__ppIf]; STATE 6327 [sym__ppStatementBlock];
   STATE 11840 [aux_sym_labeledStatement_repeat1]; STATE 863 [aux_sym__statementsTr_repeat1];
   STATE 6664 [aux_sym_literalString_repeat1]; ACTIONS 397 [anon_sym_SEMI];
   ACTIONS 1984 [anon_sym_COLON]; ACTIONS 399 [anon_sym_LBRACK]; ACTIONS 401 [anon_sym_LPAREN];
   ACTIONS 403 [aux_sym__literalString_token1]; ACTIONS 405 [anon_sym_POUND];
   ACTIONS 407 [aux_sym__literalInt_token1]; ACTIONS 409 [aux_sym__literalInt_token2;
   aux_sym__literalInt_token3]; ACTIONS 407 [aux_sym__literalFloat_token1];
   ACTIONS 411 [aux_sym_ppUsesBlock_token1]; ACTIONS 413 [sym_kAdd; sym_kSub];
   ACTIONS 415 [sym_kAt]; ACTIONS 417 [sym_kTrue; sym_kFalse]; ACTIONS 419 [sym_labelNumber];
   ACTIONS 3 [sym__space]; ACTIONS 5 [sym_ppDirective]; ACTIONS 3 [sym_comment];
   ACTIONS 417 [sym_ppFragmentExpr]; ACTIONS 397 [sym_ppFragmentStmt];
   ACTIONS 403 [sym__literalStringMultiline]; ACTIONS 421 [sym_identifier];
   ACTIONS 423 [sym_kSpecialize]; ACTIONS 427 [sym_kAsm]; ACTIONS 429 [sym_kBegin];
   ACTIONS 431 [sym_kCase]; ACTIONS 433 [sym_kConst]; ACTIONS 1986 [sym_kEnd];
   ACTIONS 437 [sym_kFor]; ACTIONS 439 [sym_kFunction]; ACTIONS 441 [sym_kGoto];
   ACTIONS 443 [sym_kIf]; ACTIONS 445 [sym_kInherited]; ACTIONS 417 [sym_kNil];
   ACTIONS 415 [sym_kNot]; ACTIONS 439 [sym_kProcedure]; ACTIONS 447 [sym_kRaise];
   ACTIONS 449 [sym_kRepeat]; ACTIONS 451 [sym_kString]; ACTIONS 453 [sym_kTry];
   ACTIONS 455 [sym_kVar]; ACTIONS 457 [sym_kWhile]; ACTIONS 459 [sym_kWith]].

(** State 291. *)
Definition ts_parse_table_291 : parse_row :=
  [STATE 6213 [sym_if]; STATE 6327 [sym_ifElse; sym_while; sym_repeat; sym_for; sym_foreach;
   sym_try; sym_case; sym_block; sym_asm; sym_with; sym_raise; sym_statement; sym_goto;
   sym__statement]; STATE 15736 [sym_ifTr; sym_ifElseTr; sym_whileTr; sym_repeatTr; sym_forTr;
   sym_foreachTr; sym_tryTr; sym_caseTr]; STATE 14251 [sym_blockTr]; STATE 15736 [sym_asmTr;
   sym_withTr; sym_raiseTr; sym_statementTr; sym_gotoTr; sym__statementTr];
   STATE 13915 [sym_assignment]; STATE 11785 [sym_varAssignDef]; STATE 13915 [sym_varDef;
   sym_constDef]; STATE 6166 [sym_label]; STATE 15736 [sym__statementsTr]; STATE 8019 [sym__expr;
   sym_exprConditional]; STATE 7478 [sym__ref; sym_lambda; sym_inherited; sym_exprDot;
   sym_exprDeref; sym_exprAs; sym_exprTpl; sym_exprSubscript; sym_exprCall];
   STATE 8019 [sym_exprBinary; sym_exprUnary]; STATE 7478 [sym_exprParens; sym_exprBrackets;
   sym__literal; sym_literalString]; STATE 6664 [sym__literalString; sym_literalChar];
   STATE 7478 [sym_literalNumber]; STATE 7742 [sym__literalInt; sym__literalFloat];
   STATE 1380 [sym__ppIf]; STATE 6327 [sym__ppStatementBlock];
   STATE 11840 [aux_sym_labeledStatement_repeat1]; STATE 863 [aux_sym__statementsTr_repeat1];
   STATE 6664 [aux_sym_literalString_repeat1]; ACTIONS 397 [anon_sym_SEMI];
   ACTIONS 1988 [anon_sym_COLON]; ACTIONS 399 [anon_sym_LBRACK]; ACTIONS 401 [anon_sym_LPAREN];
   ACTIONS 403 [aux_sym__literalString_token1]; ACTIONS 405 [anon_sym_POUND];
   ACTIONS 407 [aux_sym__literalInt_token1]; ACTIONS 409 [aux_sym__literalInt_token2;
   aux_sym__literalInt_token3]; ACTIONS 407 [aux_sym__literalFloat_token1];
   ACTIONS 411 [aux_sym_ppUsesBlock_token1]; ACTIONS 413 [sym_kAdd; sym_kSub];
   ACTIONS 415 [sym_kAt]; ACTIONS 417 [sym_kTrue; sym_kFalse]; ACTIONS 419 [sym_labelNumber];
   ACTIONS 3 [sym__space]; ACTIONS 5 [sym_ppDirective]; ACTIONS 3 [sym_comment];
   ACTIONS 417 [sym_ppFragmentExpr]; ACTIONS 397 [sym_ppFragmentStmt];
   ACTIONS 403 [sym__literalStringMultiline]; ACTIONS 421 [sym_identifier];
   ACTIONS 423 [sym_kSpecialize]; ACTIONS 427 [sym_kAsm]; ACTIONS 429 [sym_kBegin];
   ACTIONS 431 [sym_kCase]; ACTIONS 433 [sym_kConst]; ACTIONS 1990 [sym_kEnd];
   ACTIONS 437 [sym_kFor]; ACTIONS 439 [sym_kFunction]; ACTIONS 441 [sym_kGoto];
   ACTIONS 443 [sym_kIf]; ACTIONS 445 [sym_kInherited]; ACTIONS 417 [sym_kNil];
   ACTIONS 415 [sym_kNot]; ACTIONS 439 [sym_kProcedure]; ACTIONS 447 [sym_kRaise];
   ACTIONS 449 [sym_kRepeat]; ACTIONS 451 [sym_kString]; ACTIONS 453 [sym_kTry];
   ACTIONS 455 [sym_kVar]; ACTIONS 457 [sym_kWhile]; ACTIONS 459 [sym_kWith]].

(** State 292. *)
Definition ts_parse_table_292 : parse_row :=
  [STATE 2899 [sym__ppIf]; STATE 996 [sym__procAttributeNoExt];
   STATE 1005 [sym__procAttributesPp]; STATE 15262 [sym_procAttribute];
   STATE 377 [aux_sym__declProc_repeat1]; ACTIONS 1992 [anon_sym_SEMI; anon_sym_COMMA];
   ACTIONS 1994 [anon_sym_LBRACK]; ACTIONS 1997 [anon_sym_LPAREN];
   ACTIONS 1992 [aux_sym__literalString_token1; anon_sym_POUND];
   ACTIONS 1997 [aux_sym__literalInt_token1]; ACTIONS 1992 [aux_sym__literalInt_token2;
   aux_sym__literalInt_token3]; ACTIONS 1997 [aux_sym__literalFloat_token1];
   ACTIONS 1999 [aux_sym_ppUsesBlock_token1]; ACTIONS 1992 [aux_sym_ppUsesBlock_token2;
   aux_sym_ppUsesBlock_token3]; ACTIONS 1997 [sym_kAdd; sym_kSub]; ACTIONS 1992 [sym_kAt;
   sym_kTrue; sym_kFalse]; ACTIONS 3 [sym__space]; ACTIONS 5 [sym_ppDirective];
   ACTIONS 3 [sym_comment]; ACTIONS 1992 [sym_ppFragmentExpr; sym__literalStringMultiline;
   sym_identifier]; ACTIONS 2002 [sym_kDefault; sym_kNodefault]; ACTIONS 2005 [sym_kDispId];
   ACTIONS 1992 [sym_kGeneric; sym_kSpecialize; sym_kOperator]; ACTIONS 2008 [sym_kPublic];
   ACTIONS 1992 [sym_kForward]; ACTIONS 2002 [sym_kStatic; sym_kVirtual; sym_kAbstract;
   sym_kDynamic; sym_kOverride; sym_kOverload; sym_kReintroduce; sym_kStdcall; sym_kCdecl;
   sym_kCppdecl; sym_kPascal; sym_kRegister; sym_kMwpascal]; ACTIONS 1992 [sym_kExternal];
   ACTIONS 2011 [sym_kMessage]; ACTIONS 2014 [sym_kDeprecated]; ACTIONS 2002 [sym_kExperimental;
   sym_kPlatform; sym_kUnimplemented; sym_kCvar]; ACTIONS 2017 [sym_kExport];
   ACTIONS 2002 [sym_kFar; sym_kNear; sym_kSafecall; sym_kAssembler; sym_kNostackframe;
   sym_kInterrupt; sym_kNoreturn; sym_kIocheck; sym_kLocal; sym_kHardfloat; sym_kSoftfloat;
   sym_kMs_abi_default; sym_kMs_abi_cdecl; sym_kSaveregisters; sym_kSysv_abi_default;
   sym_kSysv_abi_cdecl; sym_kVectorcall; sym_kVarargs; sym_kWinapi]; ACTIONS 2020 [sym_kAlias];
   ACTIONS 1992 [sym_kAsm; sym_kBegin; sym_kCase; sym_kClass; sym_kConst; sym_kConstructor;
   sym_kDestructor; sym_kExports; sym_kFor; sym_kFunction; sym_kGoto; sym_kIf; sym_kInherited];
   ACTIONS 1016 [sym_kInline]; ACTIONS 1992 [sym_kLabel; sym_kNil; sym_kNot; sym_kProcedure;
   sym_kProperty; sym_kRaise; sym_kRepeat; sym_kResourcestring; sym_kString; sym_kThreadvar;
   sym_kTry; sym_kType; sym_kUses; sym_kVar; sym_kWhile; sym_kWith]].

(** State 293. *)
Definition ts_parse_table_293 : parse_row :=
  [STATE 2899 [sym__ppIf]; STATE 996 [sym__procAttributeNoExt];
   STATE 1005 [sym__procAttributesPp]; STATE 15262 [sym_procAttribute];
   STATE 183 [aux_sym__declProc_repeat1]; ACTIONS 2023 [anon_sym_SEMI; anon_sym_COMMA];
   ACTIONS 2025 [anon_sym_LBRACK]; ACTIONS 2028 [anon_sym_LPAREN];
   ACTIONS 2023 [aux_sym__literalString_token1; anon_sym_POUND];
   ACTIONS 2028 [aux_sym__literalInt_token1]; ACTIONS 2023 [aux_sym__literalInt_token2;
   aux_sym__literalInt_token3]; ACTIONS 2028 [aux_sym__literalFloat_token1];
   ACTIONS 2030 [aux_sym_ppUsesBlock_token1]; ACTIONS 2023 [aux_sym_ppUsesBlock_token2;
   aux_sym_ppUsesBlock_token3]; ACTIONS 2028 [sym_kAdd; sym_kSub]; ACTIONS 2023 [sym_kAt;
   sym_kTrue; sym_kFalse]; ACTIONS 3 [sym__space]; ACTIONS 5 [sym_ppDirective];
   ACTIONS 3 [sym_comment]; ACTIONS 2023 [sym_ppFragmentExpr; sym__literalStringMultiline;
   sym_identifier]; ACTIONS 2033 [sym_kDefault; sym_kNodefault]; ACTIONS 2036 [sym_kDispId];
   ACTIONS 2023 [sym_kGeneric; sym_kSpecialize; sym_kOperator]; ACTIONS 2039 [sym_kPublic];
   ACTIONS 2023 [sym_kForward]; ACTIONS 2033 [sym_kStatic; sym_kVirtual; sym_kAbstract;
   sym_kDynamic; sym_kOverride; sym_kOverload; sym_kReintroduce; sym_kStdcall; sym_kCdecl;
   sym_kCppdecl; sym_kPascal; sym_kRegister; sym_kMwpascal]; ACTIONS 2023 [sym_kExternal];
   ACTIONS 2042 [sym_kMessage]; ACTIONS 2045 [sym_kDeprecated]; ACTIONS 2033 [sym_kExperimental;
   sym_kPlatform; sym_kUnimplemented; sym_kCvar]; ACTIONS 2048 [sym_kExport];
   ACTIONS 2033 [sym_kFar; sym_kNear; sym_kSafecall; sym_kAssembler; sym_kNostackframe;
   sym_kInterrupt; sym_kNoreturn; sym_kIocheck; sym_kLocal; sym_kHardfloat; sym_kSoftfloat;
   sym_kMs_abi_default; sym_kMs_abi_cdecl; sym_kSaveregisters; sym_kSysv_abi_default;
   sym_kSysv_abi_cdecl; sym_kVectorcall; sym_kVarargs; sym_kWinapi]; ACTIONS 2051 [sym_kAlias];
   ACTIONS 2023 [sym_kAsm; sym_kBegin; sym_kCase; sym_kClass; sym_kConst; sym_kConstructor;
   sym_kDestructor; sym_kExports; sym_kFor; sym_kFunction; sym_kGoto; sym_kIf; sym_kInherited];
   ACTIONS 1016 [sym_kInline]; ACTIONS 2023 [sym_kLabel; sym_kNil; sym_kNot; sym_kProcedure;
   sym_kProperty; sym_kRaise; sym_kRepeat; sym_kResourcestring; sym_kString; sym_kThreadvar;
   sym_kTry; sym_kType; sym_kUses; sym_kVar; sym_kWhile; sym_kWith]].

(** State 294. *)
Definition ts_parse_table_294 : parse_row :=
  [STATE 6213 [sym_if]; STATE 6327 [sym_ifElse; sym_while; sym_repeat; sym_for; sym_foreach;
   sym_try; sym_case; sym_block; sym_asm; sym_with; sym_raise; sym_statement; sym_goto;
   sym__statement]; STATE 15991 [sym_ifTr; sym_ifElseTr; sym_whileTr; sym_repeatTr; sym_forTr;
   sym_foreachTr; sym_tryTr; sym_caseTr]; STATE 14251 [sym_blockTr]; STATE 15991 [sym_asmTr;
   sym_withTr; sym_raiseTr; sym_statementTr; sym_gotoTr; sym__statementTr];
   STATE 13915 [sym_assignment]; STATE 11785 [sym_varAssignDef]; STATE 13915 [sym_varDef;
   sym_constDef]; STATE 6166 [sym_label]; STATE 15991 [sym__statementsTr];
   STATE 15923 [sym_statementsTr]; STATE 8019 [sym__expr; sym_exprConditional];
   STATE 7478 [sym__ref; sym_lambda; sym_inherited; sym_exprDot; sym_exprDeref; sym_exprAs;
   sym_exprTpl; sym_exprSubscript; sym_exprCall]; STATE 8019 [sym_exprBinary; sym_exprUnary];
   STATE 7478 [sym_exprParens; sym_exprBrackets; sym__literal; sym_literalString];
   STATE 6664 [sym__literalString; sym_literalChar]; STATE 7478 [sym_literalNumber];
   STATE 7742 [sym__literalInt; sym__literalFloat]; STATE 1380 [sym__ppIf];
   STATE 6327 [sym__ppStatementBlock]; STATE 11840 [aux_sym_labeledStatement_repeat1];
   STATE 863 [aux_sym__statementsTr_repeat1]; STATE 6664 [aux_sym_literalString_repeat1];
   ACTIONS 397 [anon_sym_SEMI]; ACTIONS 399 [anon_sym_LBRACK]; ACTIONS 401 [anon_sym_LPAREN];
   ACTIONS 403 [aux_sym__literalString_token1]; ACTIONS 405 [anon_sym_POUND];
   ACTIONS 407 [aux_sym__literalInt_token1]; ACTIONS 409 [aux_sym__literalInt_token2;
   aux_sym__literalInt_token3]; ACTIONS 407 [aux_sym__literalFloat_token1];
   ACTIONS 411 [aux_sym_ppUsesBlock_token1]; ACTIONS 413 [sym_kAdd; sym_kSub];
   ACTIONS 415 [sym_kAt]; ACTIONS 417 [sym_kTrue; sym_kFalse]; ACTIONS 419 [sym_labelNumber];
   ACTIONS 3 [sym__space]; ACTIONS 5 [sym_ppDirective]; ACTIONS 3 [sym_comment];
   ACTIONS 417 [sym_ppFragmentExpr]; ACTIONS 397 [sym_ppFragmentStmt];
   ACTIONS 403 [sym__literalStringMultiline]; ACTIONS 421 [sym_identifier];
   ACTIONS 423 [sym_kSpecialize]; ACTIONS 427 [sym_kAsm]; ACTIONS 429 [sym_kBegin];
   ACTIONS 431 [sym_kCase]; ACTIONS 433 [sym_kConst]; ACTIONS 2054 [sym_kEnd];
   ACTIONS 437 [sym_kFor]; ACTIONS 439 [sym_kFunction]; ACTIONS 441 [sym_kGoto];
   ACTIONS 443 [sym_kIf]; ACTIONS 445 [sym_kInherited]; ACTIONS 417 [sym_kNil];
   ACTIONS 415 [sym_kNot]; ACTIONS 439 [sym_kProcedure]; ACTIONS 447 [sym_kRaise];
   ACTIONS 449 [sym_kRepeat]; ACTIONS 451 [sym_kString]; ACTIONS 453 [sym_kTry];
   ACTIONS 455 [sym_kVar]; ACTIONS 457 [sym_kWhile]; ACTIONS 459 [sym_kWith]].

(** State 295. *)
Definition ts_parse_table_295 : parse_row :=
  [STATE 2899 [sym__ppIf]; STATE 996 [sym__procAttributeNoExt];
   STATE 1005 [sym__procAttributesPp]; STATE 15262 [sym_procAttribute];
   STATE 183 [aux_sym__declProc_repeat1]; ACTIONS 2056 [anon_sym_SEMI; anon_sym_COMMA];
   ACTIONS 2058 [anon_sym_LBRACK]; ACTIONS 2061 [anon_sym_LPAREN];
   ACTIONS 2056 [aux_sym__literalString_token1; anon_sym_POUND];
   ACTIONS 2061 [aux_sym__literalInt_token1]; ACTIONS 2056 [aux_sym__literalInt_token2;
   aux_sym__literalInt_token3]; ACTIONS 2061 [aux_sym__literalFloat_token1];
   ACTIONS 2063 [aux_sym_ppUsesBlock_token1]; ACTIONS 2056 [aux_sym_ppUsesBlock_token2;
   aux_sym_ppUsesBlock_token3]; ACTIONS 2061 [sym_kAdd; sym_kSub]; ACTIONS 2056 [sym_kAt;
   sym_kTrue; sym_kFalse]; ACTIONS 3 [sym__space]; ACTIONS 5 [sym_ppDirective];
   ACTIONS 3 [sym_comment]; ACTIONS 2056 [sym_ppFragmentExpr; sym__literalStringMultiline;
   sym_identifier]; ACTIONS 2066 [sym_kDefault; sym_kNodefault]; ACTIONS 2069 [sym_kDispId];
   ACTIONS 2056 [sym_kGeneric; sym_kSpecialize; sym_kOperator]; ACTIONS 2072 [sym_kPublic];
   ACTIONS 2056 [sym_kForward]; ACTIONS 2066 [sym_kStatic; sym_kVirtual; sym_kAbstract;
   sym_kDynamic; sym_kOverride; sym_kOverload; sym_kReintroduce; sym_kStdcall; sym_kCdecl;
   sym_kCppdecl; sym_kPascal; sym_kRegister; sym_kMwpascal]; ACTIONS 2056 [sym_kExternal];
   ACTIONS 2075 [sym_kMessage]; ACTIONS 2078 [sym_kDeprecated]; ACTIONS 2066 [sym_kExperimental;
   sym_kPlatform; sym_kUnimplemented; sym_kCvar]; ACTIONS 2081 [sym_kExport];
   ACTIONS 2066 [sym_kFar; sym_kNear; sym_kSafecall; sym_kAssembler; sym_kNostackframe;
   sym_kInterrupt; sym_kNoreturn; sym_kIocheck; sym_kLocal; sym_kHardfloat; sym_kSoftfloat;
   sym_kMs_abi_default; sym_kMs_abi_cdecl; sym_kSaveregisters; sym_kSysv_abi_default;
   sym_kSysv_abi_cdecl; sym_kVectorcall; sym_kVarargs; sym_kWinapi]; ACTIONS 2084 [sym_kAlias];
   ACTIONS 2056 [sym_kAsm; sym_kBegin; sym_kCase; sym_kClass; sym_kConst; sym_kConstructor;
   sym_kDestructor; sym_kExports; sym_kFor; sym_kFunction; sym_kGoto; sym_kIf; sym_kInherited];
   ACTIONS 1016 [sym_kInline]; ACTIONS 2056 [sym_kLabel; sym_kNil; sym_kNot; sym_kProcedure;
   sym_kProperty; sym_kRaise; sym_kRepeat; sym_kResourcestring; sym_kString; sym_kThreadvar;
   sym_kTry; sym_kType; sym_kUses; sym_kVar; sym_kWhile; sym_kWith]].

(** State 296. *)
Definition ts_parse_table_296 : parse_row :=
  [STATE 6213 [sym_if]; STATE 6327 [sym_ifElse; sym_while; sym_repeat; sym_for; sym_foreach;
   sym_try; sym_case; sym_block; sym_asm; sym_with; sym_raise; sym_statement; sym_goto;
   sym__statement]; STATE 15991 [sym_ifTr; sym_ifElseTr; sym_whileTr; sym_repeatTr; sym_forTr;
   sym_foreachTr; sym_tryTr; sym_caseTr]; STATE 14251 [sym_blockTr]; STATE 15991 [sym_asmTr;
   sym_withTr; sym_raiseTr; sym_statementTr; sym_gotoTr; sym__statementTr];
   STATE 13915 [sym_assignment]; STATE 11785 [sym_varAssignDef]; STATE 13915 [sym_varDef;
   sym_constDef]; STATE 6166 [sym_label]; STATE 15991 [sym__statementsTr];
   STATE 14119 [sym_statementsTr]; STATE 8019 [sym__expr; sym_exprConditional];
   STATE 7478 [sym__ref; sym_lambda; sym_inherited; sym_exprDot; sym_exprDeref; sym_exprAs;
   sym_exprTpl; sym_exprSubscript; sym_exprCall]; STATE 8019 [sym_exprBinary; sym_exprUnary];
   STATE 7478 [sym_exprParens; sym_exprBrackets; sym__literal; sym_literalString];
   STATE 6664 [sym__literalString; sym_literalChar]; STATE 7478 [sym_literalNumber];
   STATE 7742 [sym__literalInt; sym__literalFloat]; STATE 1380 [sym__ppIf];
   STATE 6327 [sym__ppStatementBlock]; STATE 11840 [aux_sym_labeledStatement_repeat1];
   STATE 863 [aux_sym__statementsTr_repeat1]; STATE 6664 [aux_sym_literalString_repeat1];
   ACTIONS 397 [anon_sym_SEMI]; ACTIONS 399 [anon_sym_LBRACK]; ACTIONS 401 [anon_sym_LPAREN];
   ACTIONS 403 [aux_sym__literalString_token1]; ACTIONS 405 [anon_sym_POUND];
   ACTIONS 407 [aux_sym__literalInt_token1]; ACTIONS 409 [aux_sym__literalInt_token2;
   aux_sym__literalInt_token3]; ACTIONS 407 [aux_sym__literalFloat_token1];
   ACTIONS 411 [aux_sym_ppUsesBlock_token1]; ACTIONS 413 [sym_kAdd; sym_kSub];
   ACTIONS 415 [sym_kAt]; ACTIONS 417 [sym_kTrue; sym_kFalse]; ACTIONS 419 [sym_labelNumber];
   ACTIONS 3 [sym__space]; ACTIONS 5 [sym_ppDirective]; ACTIONS 3 [sym_comment];
   ACTIONS 417 [sym_ppFragmentExpr]; ACTIONS 397 [sym_ppFragmentStmt];
   ACTIONS 403 [sym__literalStringMultiline]; ACTIONS 421 [sym_identifier];
   ACTIONS 423 [sym_kSpecialize]; ACTIONS 427 [sym_kAsm]; ACTIONS 429 [sym_kBegin];
   ACTIONS 431 [sym_kCase]; ACTIONS 433 [sym_kConst]; ACTIONS 2087 [sym_kEnd];
   ACTIONS 437 [sym_kFor]; ACTIONS 439 [sym_kFunction]; ACTIONS 441 [sym_kGoto];
   ACTIONS 443 [sym_kIf]; ACTIONS 445 [sym_kInherited]; ACTIONS 417 [sym_kNil];
   ACTIONS 415 [sym_kNot]; ACTIONS 439 [sym_kProcedure]; ACTIONS 447 [sym_kRaise];
   ACTIONS 449 [sym_kRepeat]; ACTIONS 451 [sym_kString]; ACTIONS 453 [sym_kTry];
   ACTIONS 455 [sym_kVar]; ACTIONS 457 [sym_kWhile]; ACTIONS 459 [sym_kWith]].

(** State 297. *)
Definition ts_parse_table_297 : parse_row :=
  [STATE 6213 [sym_if]; STATE 6327 [sym_ifElse; sym_while; sym_repeat; sym_for; sym_foreach;
   sym_try; sym_case; sym_block; sym_asm; sym_with; sym_raise; sym_statement; sym_goto;
   sym__statement]; STATE 14145 [sym_ifTr; sym_ifElseTr; sym_whileTr; sym_repeatTr; sym_forTr;
   sym_foreachTr; sym_tryTr; sym_caseTr]; STATE 14251 [sym_blockTr]; STATE 14145 [sym_asmTr;
   sym_withTr; sym_raiseTr; sym_statementTr; sym_gotoTr; sym__statementTr];
   STATE 13915 [sym_assignment]; STATE 11785 [sym_varAssignDef]; STATE 13915 [sym_varDef;
   sym_constDef]; STATE 6166 [sym_label]; STATE 14145 [sym__statementsTr]; STATE 8019 [sym__expr;
   sym_exprConditional]; STATE 7478 [sym__ref; sym_lambda; sym_inherited; sym_exprDot;
   sym_exprDeref; sym_exprAs; sym_exprTpl; sym_exprSubscript; sym_exprCall];
   STATE 8019 [sym_exprBinary; sym_exprUnary]; STATE 7478 [sym_exprParens; sym_exprBrackets;
   sym__literal; sym_literalString]; STATE 6664 [sym__literalString; sym_literalChar];
   STATE 7478 [sym_literalNumber]; STATE 7742 [sym__literalInt; sym__literalFloat];
   STATE 1380 [sym__ppIf]; STATE 6327 [sym__ppStatementBlock];
   STATE 11840 [aux_sym_labeledStatement_repeat1]; STATE 863 [aux_sym__statementsTr_repeat1];
   STATE 6664 [aux_sym_literalString_repeat1]; ACTIONS 397 [anon_sym_SEMI];
   ACTIONS 2089 [anon_sym_COLON]; ACTIONS 399 [anon_sym_LBRACK]; ACTIONS 401 [anon_sym_LPAREN];
   ACTIONS 403 [aux_sym__literalString_token1]; ACTIONS 405 [anon_sym_POUND];
   ACTIONS 407 [aux_sym__literalInt_token1]; ACTIONS 409 [aux_sym__literalInt_token2;
   aux_sym__literalInt_token3]; ACTIONS 407 [aux_sym__literalFloat_token1];
   ACTIONS 411 [aux_sym_ppUsesBlock_token1]; ACTIONS 413 [sym_kAdd; sym_kSub];
   ACTIONS 415 [sym_kAt]; ACTIONS 417 [sym_kTrue; sym_kFalse]; ACTIONS 419 [sym_labelNumber];
   ACTIONS 3 [sym__space]; ACTIONS 5 [sym_ppDirective]; ACTIONS 3 [sym_comment];
   ACTIONS 417 [sym_ppFragmentExpr]; ACTIONS 397 [sym_ppFragmentStmt];
   ACTIONS 403 [sym__literalStringMultiline]; ACTIONS 421 [sym_identifier];
   ACTIONS 423 [sym_kSpecialize]; ACTIONS 427 [sym_kAsm]; ACTIONS 429 [sym_kBegin];
   ACTIONS 431 [sym_kCase]; ACTIONS 433 [sym_kConst]; ACTIONS 2091 [sym_kEnd];
   ACTIONS 437 [sym_kFor]; ACTIONS 439 [sym_kFunction]; ACTIONS 441 [sym_kGoto];
   ACTIONS 443 [sym_kIf]; ACTIONS 445 [sym_kInherited]; ACTIONS 417 [sym_kNil];
   ACTIONS 415 [sym_kNot]; ACTIONS 439 [sym_kProcedure]; ACTIONS 447 [sym_kRaise];
   ACTIONS 449 [sym_kRepeat]; ACTIONS 451 [sym_kString]; ACTIONS 453 [sym_kTry];
   ACTIONS 455 [sym_kVar]; ACTIONS 457 [sym_kWhile]; ACTIONS 459 [sym_kWith]].

(** State 298. *)
Definition ts_parse_table_298 : parse_row :=
  [STATE 6213 [sym_if]; STATE 6327 [sym_ifElse; sym_while; sym_repeat; sym_for; sym_foreach;
   sym_try; sym_case; sym_block; sym_asm; sym_with; sym_raise; sym_statement; sym_goto;
   sym__statement]; STATE 14157 [sym_ifTr; sym_ifElseTr; sym_whileTr; sym_repeatTr; sym_forTr;
   sym_foreachTr; sym_tryTr; sym_caseTr]; STATE 14251 [sym_blockTr]; STATE 14157 [sym_asmTr;
   sym_withTr; sym_raiseTr; sym_statementTr; sym_gotoTr; sym__statementTr];
   STATE 13915 [sym_assignment]; STATE 11785 [sym_varAssignDef]; STATE 13915 [sym_varDef;
   sym_constDef]; STATE 6166 [sym_label]; STATE 14157 [sym__statementsTr]; STATE 8019 [sym__expr;
   sym_exprConditional]; STATE 7478 [sym__ref; sym_lambda; sym_inherited; sym_exprDot;
   sym_exprDeref; sym_exprAs; sym_exprTpl; sym_exprSubscript; sym_exprCall];
   STATE 8019 [sym_exprBinary; sym_exprUnary]; STATE 7478 [sym_exprParens; sym_exprBrackets;
   sym__literal; sym_literalString]; STATE 6664 [sym__literalString; sym_literalChar];
   STATE 7478 [sym_literalNumber]; STATE 7742 [sym__literalInt; sym__literalFloat];
   STATE 1380 [sym__ppIf]; STATE 6327 [sym__ppStatementBlock];
   STATE 11840 [aux_sym_labeledStatement_repeat1]; STATE 863 [aux_sym__statementsTr_repeat1];
   STATE 6664 [aux_sym_literalString_repeat1]; ACTIONS 397 [anon_sym_SEMI];
   ACTIONS 2093 [anon_sym_COLON]; ACTIONS 399 [anon_sym_LBRACK]; ACTIONS 401 [anon_sym_LPAREN];
   ACTIONS 403 [aux_sym__literalString_token1]; ACTIONS 405 [anon_sym_POUND];
   ACTIONS 407 [aux_sym__literalInt_token1]; ACTIONS 409 [aux_sym__literalInt_token2;
   aux_sym__literalInt_token3]; ACTIONS 407 [aux_sym__literalFloat_token1];
   ACTIONS 411 [aux_sym_ppUsesBlock_token1]; ACTIONS 413 [sym_kAdd; sym_kSub];
   ACTIONS 415 [sym_kAt]; ACTIONS 417 [sym_kTrue; sym_kFalse]; ACTIONS 419 [sym_labelNumber];
   ACTIONS 3 [sym__space]; ACTIONS 5 [sym_ppDirective]; ACTIONS 3 [sym_comment];
   ACTIONS 417 [sym_ppFragmentExpr]; ACTIONS 397 [sym_ppFragmentStmt];
   ACTIONS 403 [sym__literalStringMultiline]; ACTIONS 421 [sym_identifier];
   ACTIONS 423 [sym_kSpecialize]; ACTIONS 427 [sym_kAsm]; ACTIONS 429 [sym_kBegin];
   ACTIONS 431 [sym_kCase]; ACTIONS 433 [sym_kConst]; ACTIONS 2095 [sym_kEnd];
   ACTIONS 437 [sym_kFor]; ACTIONS 439 [sym_kFunction]; ACTIONS 441 [sym_kGoto];
   ACTIONS 443 [sym_kIf]; ACTIONS 445 [sym_kInherited]; ACTIONS 417 [sym_kNil];
   ACTIONS 415 [sym_kNot]; ACTIONS 439 [sym_kProcedure]; ACTIONS 447 [sym_kRaise];
   ACTIONS 449 [sym_kRepeat]; ACTIONS 451 [sym_kString]; ACTIONS 453 [sym_kTry];
   ACTIONS 455 [sym_kVar]; ACTIONS 457 [sym_kWhile]; ACTIONS 459 [sym_kWith]].

(** State 299. *)
Definition ts_parse_table_299 : parse_row :=
  [STATE 6213 [sym_if]; STATE 6327 [sym_ifElse; sym_while; sym_repeat; sym_for; sym_foreach;
   sym_try; sym_case; sym_block; sym_asm; sym_with; sym_raise; sym_statement; sym_goto;
   sym__statement]; STATE 14164 [sym_ifTr; sym_ifElseTr; sym_whileTr; sym_repeatTr; sym_forTr;
   sym_foreachTr; sym_tryTr; sym_caseTr]; STATE 14251 [sym_blockTr]; STATE 14164 [sym_asmTr;
   sym_withTr; sym_raiseTr; sym_statementTr; sym_gotoTr; sym__statementTr];
   STATE 13915 [sym_assignment]; STATE 11785 [sym_varAssignDef]; STATE 13915 [sym_varDef;
   sym_constDef]; STATE 6166 [sym_label]; STATE 14164 [sym__statementsTr]; STATE 8019 [sym__expr;
   sym_exprConditional]; STATE 7478 [sym__ref; sym_lambda; sym_inherited; sym_exprDot;
   sym_exprDeref; sym_exprAs; sym_exprTpl; sym_exprSubscript; sym_exprCall];
   STATE 8019 [sym_exprBinary; sym_exprUnary]; STATE 7478 [sym_exprParens; sym_exprBrackets;
   sym__literal; sym_literalString]; STATE 6664 [sym__literalString; sym_literalChar];
   STATE 7478 [sym_literalNumber]; STATE 7742 [sym__literalInt; sym__literalFloat];
   STATE 1380 [sym__ppIf]; STATE 6327 [sym__ppStatementBlock];
   STATE 11840 [aux_sym_labeledStatement_repeat1]; STATE 863 [aux_sym__statementsTr_repeat1];
   STATE 6664 [aux_sym_literalString_repeat1]; ACTIONS 397 [anon_sym_SEMI];
   ACTIONS 2097 [anon_sym_COLON]; ACTIONS 399 [anon_sym_LBRACK]; ACTIONS 401 [anon_sym_LPAREN];
   ACTIONS 403 [aux_sym__literalString_token1]; ACTIONS 405 [anon_sym_POUND];
   ACTIONS 407 [aux_sym__literalInt_token1]; ACTIONS 409 [aux_sym__literalInt_token2;
   aux_sym__literalInt_token3]; ACTIONS 407 [aux_sym__literalFloat_token1];
   ACTIONS 411 [aux_sym_ppUsesBlock_token1]; ACTIONS 413 [sym_kAdd; sym_kSub];
   ACTIONS 415 [sym_kAt]; ACTIONS 417 [sym_kTrue; sym_kFalse]; ACTIONS 419 [sym_labelNumber];
   ACTIONS 3 [sym__space]; ACTIONS 5 [sym_ppDirective]; ACTIONS 3 [sym_comment];
   ACTIONS 417 [sym_ppFragmentExpr]; ACTIONS 397 [sym_ppFragmentStmt];
   ACTIONS 403 [sym__literalStringMultiline]; ACTIONS 421 [sym_identifier];
   ACTIONS 423 [sym_kSpecialize]; ACTIONS 427 [sym_kAsm]; ACTIONS 429 [sym_kBegin];
   ACTIONS 431 [sym_kCase]; ACTIONS 433 [sym_kConst]; ACTIONS 2099 [sym_kEnd];
   ACTIONS 437 [sym_kFor]; ACTIONS 439 [sym_kFunction]; ACTIONS 441 [sym_kGoto];
   ACTIONS 443 [sym_kIf]; ACTIONS 445 [sym_kInherited]; ACTIONS 417 [sym_kNil];
   ACTIONS 415 [sym_kNot]; ACTIONS 439 [sym_kProcedure]; ACTIONS 447 [sym_kRaise];
   ACTIONS 449 [sym_kRepeat]; ACTIONS 451 [sym_kString]; ACTIONS 453 [sym_kTry];
   ACTIONS 455 [sym_kVar]; ACTIONS 457 [sym_kWhile]; ACTIONS 459 [sym_kWith]].

(** State 300. *)
Definition ts_parse_table_300 : parse_row :=
  [STATE 2899 [sym__ppIf]; STATE 996 [sym__procAttributeNoExt];
   STATE 1005 [sym__procAttributesPp]; STATE 15262 [sym_procAttribute];
   STATE 386 [aux_sym__declProc_repeat1]; ACTIONS 2101 [anon_sym_SEMI; anon_sym_COMMA];
   ACTIONS 2103 [anon_sym_LBRACK]; ACTIONS 2106 [anon_sym_LPAREN];
   ACTIONS 2101 [aux_sym__literalString_token1; anon_sym_POUND];
   ACTIONS 2106 [aux_sym__literalInt_token1]; ACTIONS 2101 [aux_sym__literalInt_token2;
   aux_sym__literalInt_token3]; ACTIONS 2106 [aux_sym__literalFloat_token1];
   ACTIONS 2108 [aux_sym_ppUsesBlock_token1]; ACTIONS 2101 [aux_sym_ppUsesBlock_token2;
   aux_sym_ppUsesBlock_token3]; ACTIONS 2106 [sym_kAdd; sym_kSub]; ACTIONS 2101 [sym_kAt;
   sym_kTrue; sym_kFalse]; ACTIONS 3 [sym__space]; ACTIONS 5 [sym_ppDirective];
   ACTIONS 3 [sym_comment]; ACTIONS 2101 [sym_ppFragmentExpr; sym__literalStringMultiline;
   sym_identifier]; ACTIONS 2111 [sym_kDefault; sym_kNodefault]; ACTIONS 2114 [sym_kDispId];
   ACTIONS 2101 [sym_kGeneric; sym_kSpecialize; sym_kOperator]; ACTIONS 2117 [sym_kPublic];
   ACTIONS 2101 [sym_kForward]; ACTIONS 2111 [sym_kStatic; sym_kVirtual; sym_kAbstract;
   sym_kDynamic; sym_kOverride; sym_kOverload; sym_kReintroduce; sym_kStdcall; sym_kCdecl;
   sym_kCppdecl; sym_kPascal; sym_kRegister; sym_kMwpascal]; ACTIONS 2101 [sym_kExternal];
   ACTIONS 2120 [sym_kMessage]; ACTIONS 2123 [sym_kDeprecated]; ACTIONS 2111 [sym_kExperimental;
   sym_kPlatform; sym_kUnimplemented; sym_kCvar]; ACTIONS 2126 [sym_kExport];
   ACTIONS 2111 [sym_kFar; sym_kNear; sym_kSafecall; sym_kAssembler; sym_kNostackframe;
   sym_kInterrupt; sym_kNoreturn; sym_kIocheck; sym_kLocal; sym_kHardfloat; sym_kSoftfloat;
   sym_kMs_abi_default; sym_kMs_abi_cdecl; sym_kSaveregisters; sym_kSysv_abi_default;
   sym_kSysv_abi_cdecl; sym_kVectorcall; sym_kVarargs; sym_kWinapi]; ACTIONS 2129 [sym_kAlias];
   ACTIONS 2101 [sym_kAsm; sym_kBegin; sym_kCase; sym_kClass; sym_kConst; sym_kConstructor;
   sym_kDestructor; sym_kExports; sym_kFor; sym_kFunction; sym_kGoto; sym_kIf; sym_kInherited];
   ACTIONS 1016 [sym_kInline]; ACTIONS 2101 [sym_kLabel; sym_kNil; sym_kNot; sym_kProcedure;
   sym_kProperty; sym_kRaise; sym_kRepeat; sym_kResourcestring; sym_kString; sym_kThreadvar;
   sym_kTry; sym_kType; sym_kUses; sym_kVar; sym_kWhile; sym_kWith]].

(** State 301. *)
Definition ts_parse_table_301 : parse_row :=
  [STATE 6213 [sym_if]; STATE 6327 [sym_ifElse; sym_while; sym_repeat; sym_for; sym_foreach;
   sym_try; sym_case; sym_block; sym_asm; sym_with; sym_raise; sym_statement; sym_goto;
   sym__statement]; STATE 15991 [sym_ifTr; sym_ifElseTr; sym_whileTr; sym_repeatTr; sym_forTr;
   sym_foreachTr; sym_tryTr; sym_caseTr]; STATE 14251 [sym_blockTr]; STATE 15991 [sym_asmTr;
   sym_withTr; sym_raiseTr; sym_statementTr; sym_gotoTr; sym__statementTr];
   STATE 13915 [sym_assignment]; STATE 11785 [sym_varAssignDef]; STATE 13915 [sym_varDef;
   sym_constDef]; STATE 6166 [sym_label]; STATE 15991 [sym__statementsTr];
   STATE 14279 [sym_statementsTr]; STATE 8019 [sym__expr; sym_exprConditional];
   STATE 7478 [sym__ref; sym_lambda; sym_inherited; sym_exprDot; sym_exprDeref; sym_exprAs;
   sym_exprTpl; sym_exprSubscript; sym_exprCall]; STATE 8019 [sym_exprBinary; sym_exprUnary];
   STATE 7478 [sym_exprParens; sym_exprBrackets; sym__literal; sym_literalString];
   STATE 6664 [sym__literalString; sym_literalChar]; STATE 7478 [sym_literalNumber];
   STATE 7742 [sym__literalInt; sym__literalFloat]; STATE 1380 [sym__ppIf];
   STATE 6327 [sym__ppStatementBlock]; STATE 11840 [aux_sym_labeledStatement_repeat1];
   STATE 863 [aux_sym__statementsTr_repeat1]; STATE 6664 [aux_sym_literalString_repeat1];
   ACTIONS 397 [anon_sym_SEMI]; ACTIONS 399 [anon_sym_LBRACK]; ACTIONS 401 [anon_sym_LPAREN];
   ACTIONS 403 [aux_sym__literalString_token1]; ACTIONS 405 [anon_sym_POUND];
   ACTIONS 407 [aux_sym__literalInt_token1]; ACTIONS 409 [aux_sym__literalInt_token2;
   aux_sym__literalInt_token3]; ACTIONS 407 [aux_sym__literalFloat_token1];
   ACTIONS 411 [aux_sym_ppUsesBlock_token1]; ACTIONS 413 [sym_kAdd; sym_kSub];
   ACTIONS 415 [sym_kAt]; ACTIONS 417 [sym_kTrue; sym_kFalse]; ACTIONS 419 [sym_labelNumber];
   ACTIONS 3 [sym__space]; ACTIONS 5 [sym_ppDirective]; ACTIONS 3 [sym_comment];
   ACTIONS 417 [sym_ppFragmentExpr]; ACTIONS 397 [sym_ppFragmentStmt];
   ACTIONS 403 [sym__literalStringMultiline]; ACTIONS 421 [sym_identifier];
   ACTIONS 423 [sym_kSpecialize]; ACTIONS 427 [sym_kAsm]; ACTIONS 429 [sym_kBegin];
   ACTIONS 431 [sym_kCase]; ACTIONS 433 [sym_kConst]; ACTIONS 2132 [sym_kEnd];
   ACTIONS 437 [sym_kFor]; ACTIONS 439 [sym_kFunction]; ACTIONS 441 [sym_kGoto];
   ACTIONS 443 [sym_kIf]; ACTIONS 445 [sym_kInherited]; ACTIONS 417 [sym_kNil];
   ACTIONS 415 [sym_kNot]; ACTIONS 439 [sym_kProcedure]; ACTIONS 447 [sym_kRaise];
   ACTIONS 449 [sym_kRepeat]; ACTIONS 451 [sym_kString]; ACTIONS 453 [sym_kTry];
   ACTIONS 455 [sym_kVar]; ACTIONS 457 [sym_kWhile]; ACTIONS 459 [sym_kWith]].

(** State 302. *)
Definition ts_parse_table_302 : parse_row :=
  [STATE 6213 [sym_if]; STATE 6327 [sym_ifElse; sym_while; sym_repeat; sym_for; sym_foreach;
   sym_try; sym_case; sym_block; sym_asm; sym_with; sym_raise; sym_statement; sym_goto;
   sym__statement]; STATE 15991 [sym_ifTr; sym_ifElseTr; sym_whileTr; sym_repeatTr; sym_forTr;
   sym_foreachTr; sym_tryTr; sym_caseTr]; STATE 14251 [sym_blockTr]; STATE 15991 [sym_asmTr;
   sym_withTr; sym_raiseTr; sym_statementTr; sym_gotoTr; sym__statementTr];
   STATE 13915 [sym_assignment]; STATE 11785 [sym_varAssignDef]; STATE 13915 [sym_varDef;
   sym_constDef]; STATE 6166 [sym_label]; STATE 15991 [sym__statementsTr];
   STATE 14343 [sym_statementsTr]; STATE 8019 [sym__expr; sym_exprConditional];
   STATE 7478 [sym__ref; sym_lambda; sym_inherited; sym_exprDot; sym_exprDeref; sym_exprAs;
   sym_exprTpl; sym_exprSubscript; sym_exprCall]; STATE 8019 [sym_exprBinary; sym_exprUnary];
   STATE 7478 [sym_exprParens; sym_exprBrackets; sym__literal; sym_literalString];
   STATE 6664 [sym__literalString; sym_literalChar]; STATE 7478 [sym_literalNumber];
   STATE 7742 [sym__literalInt; sym__literalFloat]; STATE 1380 [sym__ppIf];
   STATE 6327 [sym__ppStatementBlock]; STATE 11840 [aux_sym_labeledStatement_repeat1];
   STATE 863 [aux_sym__statementsTr_repeat1]; STATE 6664 [aux_sym_literalString_repeat1];
   ACTIONS 397 [anon_sym_SEMI]; ACTIONS 399 [anon_sym_LBRACK]; ACTIONS 401 [anon_sym_LPAREN];
   ACTIONS 403 [aux_sym__literalString_token1]; ACTIONS 405 [anon_sym_POUND];
   ACTIONS 407 [aux_sym__literalInt_token1]; ACTIONS 409 [aux_sym__literalInt_token2;
   aux_sym__literalInt_token3]; ACTIONS 407 [aux_sym__literalFloat_token1];
   ACTIONS 411 [aux_sym_ppUsesBlock_token1]; ACTIONS 413 [sym_kAdd; sym_kSub];
   ACTIONS 415 [sym_kAt]; ACTIONS 417 [sym_kTrue; sym_kFalse]; ACTIONS 419 [sym_labelNumber];
   ACTIONS 3 [sym__space]; ACTIONS 5 [sym_ppDirective]; ACTIONS 3 [sym_comment];
   ACTIONS 417 [sym_ppFragmentExpr]; ACTIONS 397 [sym_ppFragmentStmt];
   ACTIONS 403 [sym__literalStringMultiline]; ACTIONS 421 [sym_identifier];
   ACTIONS 423 [sym_kSpecialize]; ACTIONS 427 [sym_kAsm]; ACTIONS 429 [sym_kBegin];
   ACTIONS 431 [sym_kCase]; ACTIONS 433 [sym_kConst]; ACTIONS 2134 [sym_kEnd];
   ACTIONS 437 [sym_kFor]; ACTIONS 439 [sym_kFunction]; ACTIONS 441 [sym_kGoto];
   ACTIONS 443 [sym_kIf]; ACTIONS 445 [sym_kInherited]; ACTIONS 417 [sym_kNil];
   ACTIONS 415 [sym_kNot]; ACTIONS 439 [sym_kProcedure]; ACTIONS 447 [sym_kRaise];
   ACTIONS 449 [sym_kRepeat]; ACTIONS 451 [sym_kString]; ACTIONS 453 [sym_kTry];
   ACTIONS 455 [sym_kVar]; ACTIONS 457 [sym_kWhile]; ACTIONS 459 [sym_kWith]].

(** State 303. *)
Definition ts_parse_table_303 : parse_row :=
  [STATE 6213 [sym_if]; STATE 6327 [sym_ifElse; sym_while; sym_repeat; sym_for; sym_foreach;
   sym_try; sym_case; sym_block; sym_asm; sym_with; sym_raise; sym_statement; sym_goto;
   sym__statement]; STATE 14360 [sym_ifTr; sym_ifElseTr; sym_whileTr; sym_repeatTr; sym_forTr;
   sym_foreachTr; sym_tryTr; sym_caseTr]; STATE 14251 [sym_blockTr]; STATE 14360 [sym_asmTr;
   sym_withTr; sym_raiseTr; sym_statementTr; sym_gotoTr; sym__statementTr];
   STATE 13915 [sym_assignment]; STATE 11785 [sym_varAssignDef]; STATE 13915 [sym_varDef;
   sym_constDef]; STATE 6166 [sym_label]; STATE 14360 [sym__statementsTr]; STATE 8019 [sym__expr;
   sym_exprConditional]; STATE 7478 [sym__ref; sym_lambda; sym_inherited; sym_exprDot;
   sym_exprDeref; sym_exprAs; sym_exprTpl; sym_exprSubscript; sym_exprCall];
   STATE 8019 [sym_exprBinary; sym_exprUnary]; STATE 7478 [sym_exprParens; sym_exprBrackets;
   sym__literal; sym_literalString]; STATE 6664 [sym__literalString; sym_literalChar];
   STATE 7478 [sym_literalNumber]; STATE 7742 [sym__literalInt; sym__literalFloat];
   STATE 1380 [sym__ppIf]; STATE 6327 [sym__ppStatementBlock];
   STATE 11840 [aux_sym_labeledStatement_repeat1]; STATE 863 [aux_sym__statementsTr_repeat1];
   STATE 6664 [aux_sym_literalString_repeat1]; ACTIONS 397 [anon_sym_SEMI];
   ACTIONS 2136 [anon_sym_COLON]; ACTIONS 399 [anon_sym_LBRACK]; ACTIONS 401 [anon_sym_LPAREN];
   ACTIONS 403 [aux_sym__literalString_token1]; ACTIONS 405 [anon_sym_POUND];
   ACTIONS 407 [aux_sym__literalInt_token1]; ACTIONS 409 [aux_sym__literalInt_token2;
   aux_sym__literalInt_token3]; ACTIONS 407 [aux_sym__literalFloat_token1];
   ACTIONS 411 [aux_sym_ppUsesBlock_token1]; ACTIONS 413 [sym_kAdd; sym_kSub];
   ACTIONS 415 [sym_kAt]; ACTIONS 417 [sym_kTrue; sym_kFalse]; ACTIONS 419 [sym_labelNumber];
   ACTIONS 3 [sym__space]; ACTIONS 5 [sym_ppDirective]; ACTIONS 3 [sym_comment];
   ACTIONS 417 [sym_ppFragmentExpr]; ACTIONS 397 [sym_ppFragmentStmt];
   ACTIONS 403 [sym__literalStringMultiline]; ACTIONS 421 [sym_identifier];
   ACTIONS 423 [sym_kSpecialize]; ACTIONS 427 [sym_kAsm]; ACTIONS 429 [sym_kBegin];
   ACTIONS 431 [sym_kCase]; ACTIONS 433 [sym_kConst]; ACTIONS 2138 [sym_kEnd];
   ACTIONS 437 [sym_kFor]; ACTIONS 439 [sym_kFunction]; ACTIONS 441 [sym_kGoto];
   ACTIONS 443 [sym_kIf]; ACTIONS 445 [sym_kInherited]; ACTIONS 417 [sym_kNil];
   ACTIONS 415 [sym_kNot]; ACTIONS 439 [sym_kProcedure]; ACTIONS 447 [sym_kRaise];
   ACTIONS 449 [sym_kRepeat]; ACTIONS 451 [sym_kString]; ACTIONS 453 [sym_kTry];
   ACTIONS 455 [sym_kVar]; ACTIONS 457 [sym_kWhile]; ACTIONS 459 [sym_kWith]].

(** State 304. *)
Definition ts_parse_table_304 : parse_row :=
  [STATE 6213 [sym_if]; STATE 6327 [sym_ifElse; sym_while; sym_repeat; sym_for; sym_foreach;
   sym_try; sym_case; sym_block; sym_asm; sym_with; sym_raise; sym_statement; sym_goto;
   sym__statement]; STATE 14374 [sym_ifTr; sym_ifElseTr; sym_whileTr; sym_repeatTr; sym_forTr;
   sym_foreachTr; sym_tryTr; sym_caseTr]; STATE 14251 [sym_blockTr]; STATE 14374 [sym_asmTr;
   sym_withTr; sym_raiseTr; sym_statementTr; sym_gotoTr; sym__statementTr];
   STATE 13915 [sym_assignment]; STATE 11785 [sym_varAssignDef]; STATE 13915 [sym_varDef;
   sym_constDef]; STATE 6166 [sym_label]; STATE 14374 [sym__statementsTr]; STATE 8019 [sym__expr;
   sym_exprConditional]; STATE 7478 [sym__ref; sym_lambda; sym_inherited; sym_exprDot;
   sym_exprDeref; sym_exprAs; sym_exprTpl; sym_exprSubscript; sym_exprCall];
   STATE 8019 [sym_exprBinary; sym_exprUnary]; STATE 7478 [sym_exprParens; sym_exprBrackets;
   sym__literal; sym_literalString]; STATE 6664 [sym__literalString; sym_literalChar];
   STATE 7478 [sym_literalNumber]; STATE 7742 [sym__literalInt; sym__literalFloat];
   STATE 1380 [sym__ppIf]; STATE 6327 [sym__ppStatementBlock];
   STATE 11840 [aux_sym_labeledStatement_repeat1]; STATE 863 [aux_sym__statementsTr_repeat1];
   STATE 6664 [aux_sym_literalString_repeat1]; ACTIONS 397 [anon_sym_SEMI];
   ACTIONS 2140 [anon_sym_COLON]; ACTIONS 399 [anon_sym_LBRACK]; ACTIONS 401 [anon_sym_LPAREN];
   ACTIONS 403 [aux_sym__literalString_token1]; ACTIONS 405 [anon_sym_POUND];
   ACTIONS 407 [aux_sym__literalInt_token1]; ACTIONS 409 [aux_sym__literalInt_token2;
   aux_sym__literalInt_token3]; ACTIONS 407 [aux_sym__literalFloat_token1];
   ACTIONS 411 [aux_sym_ppUsesBlock_token1]; ACTIONS 413 [sym_kAdd; sym_kSub];
   ACTIONS 415 [sym_kAt]; ACTIONS 417 [sym_kTrue; sym_kFalse]; ACTIONS 419 [sym_labelNumber];
   ACTIONS 3 [sym__space]; ACTIONS 5 [sym_ppDirective]; ACTIONS 3 [sym_comment];
   ACTIONS 417 [sym_ppFragmentExpr]; ACTIONS 397 [sym_ppFragmentStmt];
   ACTIONS 403 [sym__literalStringMultiline]; ACTIONS 421 [sym_identifier];
   ACTIONS 423 [sym_kSpecialize]; ACTIONS 427 [sym_kAsm]; ACTIONS 429 [sym_kBegin];
   ACTIONS 431 [sym_kCase]; ACTIONS 433 [sym_kConst]; ACTIONS 2142 [sym_kEnd];
   ACTIONS 437 [sym_kFor]; ACTIONS 439 [sym_kFunction]; ACTIONS 441 [sym_kGoto];
   ACTIONS 443 [sym_kIf]; ACTIONS 445 [sym_kInherited]; ACTIONS 417 [sym_kNil];
   ACTIONS 415 [sym_kNot]; ACTIONS 439 [sym_kProcedure]; ACTIONS 447 [sym_kRaise];
   ACTIONS 449 [sym_kRepeat]; ACTIONS 451 [sym_kString]; ACTIONS 453 [sym_kTry];
   ACTIONS 455 [sym_kVar]; ACTIONS 457 [sym_kWhile]; ACTIONS 459 [sym_kWith]].

(** State 305. *)
Definition ts_parse_table_305 : parse_row :=
  [STATE 6213 [sym_if]; STATE 6327 [sym_ifElse; sym_while; sym_repeat; sym_for; sym_foreach;
   sym_try; sym_case; sym_block; sym_asm; sym_with; sym_raise; sym_statement; sym_goto;
   sym__statement]; STATE 14378 [sym_ifTr; sym_ifElseTr; sym_whileTr; sym_repeatTr; sym_forTr;
   sym_foreachTr; sym_tryTr; sym_caseTr]; STATE 14251 [sym_blockTr]; STATE 14378 [sym_asmTr;
   sym_withTr; sym_raiseTr; sym_statementTr; sym_gotoTr; sym__statementTr];
   STATE 13915 [sym_assignment]; STATE 11785 [sym_varAssignDef]; STATE 13915 [sym_varDef;
   sym_constDef]; STATE 6166 [sym_label]; STATE 14378 [sym__statementsTr]; STATE 8019 [sym__expr;
   sym_exprConditional]; STATE 7478 [sym__ref; sym_lambda; sym_inherited; sym_exprDot;
   sym_exprDeref; sym_exprAs; sym_exprTpl; sym_exprSubscript; sym_exprCall];
   STATE 8019 [sym_exprBinary; sym_exprUnary]; STATE 7478 [sym_exprParens; sym_exprBrackets;
   sym__literal; sym_literalString]; STATE 6664 [sym__literalString; sym_literalChar];
   STATE 7478 [sym_literalNumber]; STATE 7742 [sym__literalInt; sym__literalFloat];
   STATE 1380 [sym__ppIf]; STATE 6327 [sym__ppStatementBlock];
   STATE 11840 [aux_sym_labeledStatement_repeat1]; STATE 863 [aux_sym__statementsTr_repeat1];
   STATE 6664 [aux_sym_literalString_repeat1]; ACTIONS 397 [anon_sym_SEMI];
   ACTIONS 2144 [anon_sym_COLON]; ACTIONS 399 [anon_sym_LBRACK]; ACTIONS 401 [anon_sym_LPAREN];
   ACTIONS 403 [aux_sym__literalString_token1]; ACTIONS 405 [anon_sym_POUND];
   ACTIONS 407 [aux_sym__literalInt_token1]; ACTIONS 409 [aux_sym__literalInt_token2;
   aux_sym__literalInt_token3]; ACTIONS 407 [aux_sym__literalFloat_token1];
   ACTIONS 411 [aux_sym_ppUsesBlock_token1]; ACTIONS 413 [sym_kAdd; sym_kSub];
   ACTIONS 415 [sym_kAt]; ACTIONS 417 [sym_kTrue; sym_kFalse]; ACTIONS 419 [sym_labelNumber];
   ACTIONS 3 [sym__space]; ACTIONS 5 [sym_ppDirective]; ACTIONS 3 [sym_comment];
   ACTIONS 417 [sym_ppFragmentExpr]; ACTIONS 397 [sym_ppFragmentStmt];
   ACTIONS 403 [sym__literalStringMultiline]; ACTIONS 421 [sym_identifier];
   ACTIONS 423 [sym_kSpecialize]; ACTIONS 427 [sym_kAsm]; ACTIONS 429 [sym_kBegin];
   ACTIONS 431 [sym_kCase]; ACTIONS 433 [sym_kConst]; ACTIONS 2146 [sym_kEnd];
   ACTIONS 437 [sym_kFor]; ACTIONS 439 [sym_kFunction]; ACTIONS 441 [sym_kGoto];
   ACTIONS 443 [sym_kIf]; ACTIONS 445 [sym_kInherited]; ACTIONS 417 [sym_kNil];
   ACTIONS 415 [sym_kNot]; ACTIONS 439 [sym_kProcedure]; ACTIONS 447 [sym_kRaise];
   ACTIONS 449 [sym_kRepeat]; ACTIONS 451 [sym_kString]; ACTIONS 453 [sym_kTry];
   ACTIONS 455 [sym_kVar]; ACTIONS 457 [sym_kWhile]; ACTIONS 459 [sym_kWith]].

(** State 306. *)
Definition ts_parse_table_306 : parse_row :=
  [STATE 6213 [sym_if]; STATE 6327 [sym_ifElse; sym_while; sym_repeat; sym_for; sym_foreach;
   sym_try; sym_case; sym_block; sym_asm; sym_with; sym_raise; sym_statement; sym_goto;
   sym__statement]; STATE 15991 [sym_ifTr; sym_ifElseTr; sym_whileTr; sym_repeatTr; sym_forTr;
   sym_foreachTr; sym_tryTr; sym_caseTr]; STATE 14251 [sym_blockTr]; STATE 15991 [sym_asmTr;
   sym_withTr; sym_raiseTr; sym_statementTr; sym_gotoTr; sym__statementTr];
   STATE 13915 [sym_assignment]; STATE 11785 [sym_varAssignDef]; STATE 13915 [sym_varDef;
   sym_constDef]; STATE 6166 [sym_label]; STATE 15991 [sym__statementsTr];
   STATE 14508 [sym_statementsTr]; STATE 8019 [sym__expr; sym_exprConditional];
   STATE 7478 [sym__ref; sym_lambda; sym_inherited; sym_exprDot; sym_exprDeref; sym_exprAs;
   sym_exprTpl; sym_exprSubscript; sym_exprCall]; STATE 8019 [sym_exprBinary; sym_exprUnary];
   STATE 7478 [sym_exprParens; sym_exprBrackets; sym__literal; sym_literalString];
   STATE 6664 [sym__literalString; sym_literalChar]; STATE 7478 [sym_literalNumber];
   STATE 7742 [sym__literalInt; sym__literalFloat]; STATE 1380 [sym__ppIf];
   STATE 6327 [sym__ppStatementBlock]; STATE 11840 [aux_sym_labeledStatement_repeat1];
   STATE 863 [aux_sym__statementsTr_repeat1]; STATE 6664 [aux_sym_literalString_repeat1];
   ACTIONS 397 [anon_sym_SEMI]; ACTIONS 399 [anon_sym_LBRACK]; ACTIONS 401 [anon_sym_LPAREN];
   ACTIONS 403 [aux_sym__literalString_token1]; ACTIONS 405 [anon_sym_POUND];
   ACTIONS 407 [aux_sym__literalInt_token1]; ACTIONS 409 [aux_sym__literalInt_token2;
   aux_sym__literalInt_token3]; ACTIONS 407 [aux_sym__literalFloat_token1];
   ACTIONS 411 [aux_sym_ppUsesBlock_token1]; ACTIONS 413 [sym_kAdd; sym_kSub];
   ACTIONS 415 [sym_kAt]; ACTIONS 417 [sym_kTrue; sym_kFalse]; ACTIONS 419 [sym_labelNumber];
   ACTIONS 3 [sym__space]; ACTIONS 5 [sym_ppDirective]; ACTIONS 3 [sym_comment];
   ACTIONS 417 [sym_ppFragmentExpr]; ACTIONS 397 [sym_ppFragmentStmt];
   ACTIONS 403 [sym__literalStringMultiline]; ACTIONS 421 [sym_identifier];
   ACTIONS 423 [sym_kSpecialize]; ACTIONS 427 [sym_kAsm]; ACTIONS 429 [sym_kBegin];
   ACTIONS 431 [sym_kCase]; ACTIONS 433 [sym_kConst]; ACTIONS 2148 [sym_kEnd];
   ACTIONS 437 [sym_kFor]; ACTIONS 439 [sym_kFunction]; ACTIONS 441 [sym_kGoto];
   ACTIONS 443 [sym_kIf]; ACTIONS 445 [sym_kInherited]; ACTIONS 417 [sym_kNil];
   ACTIONS 415 [sym_kNot]; ACTIONS 439 [sym_kProcedure]; ACTIONS 447 [sym_kRaise];
   ACTIONS 449 [sym_kRepeat]; ACTIONS 451 [sym_kString]; ACTIONS 453 [sym_kTry];
   ACTIONS 455 [sym_kVar]; ACTIONS 457 [sym_kWhile]; ACTIONS 459 [sym_kWith]].

(** State 307. *)
Definition ts_parse_table_307 : parse_row :=
  [STATE 6213 [sym_if]; STATE 6327 [sym_ifElse; sym_while; sym_repeat; sym_for; sym_foreach;
   sym_try; sym_case; sym_block; sym_asm; sym_with; sym_raise; sym_statement; sym_goto;
   sym__statement]; STATE 15991 [sym_ifTr; sym_ifElseTr; sym_whileTr; sym_repeatTr; sym_forTr;
   sym_foreachTr; sym_tryTr; sym_caseTr]; STATE 14251 [sym_blockTr]; STATE 15991 [sym_asmTr;
   sym_withTr; sym_raiseTr; sym_statementTr; sym_gotoTr; sym__statementTr];
   STATE 13915 [sym_assignment]; STATE 11785 [sym_varAssignDef]; STATE 13915 [sym_varDef;
   sym_constDef]; STATE 6166 [sym_label]; STATE 15991 [sym__statementsTr];
   STATE 14563 [sym_statementsTr]; STATE 8019 [sym__expr; sym_exprConditional];
   STATE 7478 [sym__ref; sym_lambda; sym_inherited; sym_exprDot; sym_exprDeref; sym_exprAs;
   sym_exprTpl; sym_exprSubscript; sym_exprCall]; STATE 8019 [sym_exprBinary; sym_exprUnary];
   STATE 7478 [sym_exprParens; sym_exprBrackets; sym__literal; sym_literalString];
   STATE 6664 [sym__literalString; sym_literalChar]; STATE 7478 [sym_literalNumber];
   STATE 7742 [sym__literalInt; sym__literalFloat]; STATE 1380 [sym__ppIf];
   STATE 6327 [sym__ppStatementBlock]; STATE 11840 [aux_sym_labeledStatement_repeat1];
   STATE 863 [aux_sym__statementsTr_repeat1]; STATE 6664 [aux_sym_literalString_repeat1];
   ACTIONS 397 [anon_sym_SEMI]; ACTIONS 399 [anon_sym_LBRACK]; ACTIONS 401 [anon_sym_LPAREN];
   ACTIONS 403 [aux_sym__literalString_token1]; ACTIONS 405 [anon_sym_POUND];
   ACTIONS 407 [aux_sym__literalInt_token1]; ACTIONS 409 [aux_sym__literalInt_token2;
   aux_sym__literalInt_token3]; ACTIONS 407 [aux_sym__literalFloat_token1];
   ACTIONS 411 [aux_sym_ppUsesBlock_token1]; ACTIONS 413 [sym_kAdd; sym_kSub];
   ACTIONS 415 [sym_kAt]; ACTIONS 417 [sym_kTrue; sym_kFalse]; ACTIONS 419 [sym_labelNumber];
   ACTIONS 3 [sym__space]; ACTIONS 5 [sym_ppDirective]; ACTIONS 3 [sym_comment];
   ACTIONS 417 [sym_ppFragmentExpr]; ACTIONS 397 [sym_ppFragmentStmt];
   ACTIONS 403 [sym__literalStringMultiline]; ACTIONS 421 [sym_identifier];
   ACTIONS 423 [sym_kSpecialize]; ACTIONS 427 [sym_kAsm]; ACTIONS 429 [sym_kBegin];
   ACTIONS 431 [sym_kCase]; ACTIONS 433 [sym_kConst]; ACTIONS 2150 [sym_kEnd];
   ACTIONS 437 [sym_kFor]; ACTIONS 439 [sym_kFunction]; ACTIONS 441 [sym_kGoto];
   ACTIONS 443 [sym_kIf]; ACTIONS 445 [sym_kInherited]; ACTIONS 417 [sym_kNil];
   ACTIONS 415 [sym_kNot]; ACTIONS 439 [sym_kProcedure]; ACTIONS 447 [sym_kRaise];
   ACTIONS 449 [sym_kRepeat]; ACTIONS 451 [sym_kString]; ACTIONS 453 [sym_kTry];
   ACTIONS 455 [sym_kVar]; ACTIONS 457 [sym_kWhile]; ACTIONS 459 [sym_kWith]].

(** State 308. *)
Definition ts_parse_table_308 : parse_row :=
  [STATE 6213 [sym_if]; STATE 6327 [sym_ifElse; sym_while; sym_repeat; sym_for; sym_foreach;
   sym_try; sym_case; sym_block; sym_asm; sym_with; sym_raise; sym_statement; sym_goto;
   sym__statement]; STATE 14577 [sym_ifTr; sym_ifElseTr; sym_whileTr; sym_repeatTr; sym_forTr;
   sym_foreachTr; sym_tryTr; sym_caseTr]; STATE 14251 [sym_blockTr]; STATE 14577 [sym_asmTr;
   sym_withTr; sym_raiseTr; sym_statementTr; sym_gotoTr; sym__statementTr];
   STATE 13915 [sym_assignment]; STATE 11785 [sym_varAssignDef]; STATE 13915 [sym_varDef;
   sym_constDef]; STATE 6166 [sym_label]; STATE 14577 [sym__statementsTr]; STATE 8019 [sym__expr;
   sym_exprConditional]; STATE 7478 [sym__ref; sym_lambda; sym_inherited; sym_exprDot;
   sym_exprDeref; sym_exprAs; sym_exprTpl; sym_exprSubscript; sym_exprCall];
   STATE 8019 [sym_exprBinary; sym_exprUnary]; STATE 7478 [sym_exprParens; sym_exprBrackets;
   sym__literal; sym_literalString]; STATE 6664 [sym__literalString; sym_literalChar];
   STATE 7478 [sym_literalNumber]; STATE 7742 [sym__literalInt; sym__literalFloat];
   STATE 1380 [sym__ppIf]; STATE 6327 [sym__ppStatementBlock];
   STATE 11840 [aux_sym_labeledStatement_repeat1]; STATE 863 [aux_sym__statementsTr_repeat1];
   STATE 6664 [aux_sym_literalString_repeat1]; ACTIONS 397 [anon_sym_SEMI];
   ACTIONS 2152 [anon_sym_COLON]; ACTIONS 399 [anon_sym_LBRACK]; ACTIONS 401 [anon_sym_LPAREN];
   ACTIONS 403 [aux_sym__literalString_token1]; ACTIONS 405 [anon_sym_POUND];
   ACTIONS 407 [aux_sym__literalInt_token1]; ACTIONS 409 [aux_sym__literalInt_token2;
   aux_sym__literalInt_token3]; ACTIONS 407 [aux_sym__literalFloat_token1];
   ACTIONS 411 [aux_sym_ppUsesBlock_token1]; ACTIONS 413 [sym_kAdd; sym_kSub];
   ACTIONS 415 [sym_kAt]; ACTIONS 417 [sym_kTrue; sym_kFalse]; ACTIONS 419 [sym_labelNumber];
   ACTIONS 3 [sym__space]; ACTIONS 5 [sym_ppDirective]; ACTIONS 3 [sym_comment];
   ACTIONS 417 [sym_ppFragmentExpr]; ACTIONS 397 [sym_ppFragmentStmt];
   ACTIONS 403 [sym__literalStringMultiline]; ACTIONS 421 [sym_identifier];
   ACTIONS 423 [sym_kSpecialize]; ACTIONS 427 [sym_kAsm]; ACTIONS 429 [sym_kBegin];
   ACTIONS 431 [sym_kCase]; ACTIONS 433 [sym_kConst]; ACTIONS 2154 [sym_kEnd];
   ACTIONS 437 [sym_kFor]; ACTIONS 439 [sym_kFunction]; ACTIONS 441 [sym_kGoto];
   ACTIONS 443 [sym_kIf]; ACTIONS 445 [sym_kInherited]; ACTIONS 417 [sym_kNil];
   ACTIONS 415 [sym_kNot]; ACTIONS 439 [sym_kProcedure]; ACTIONS 447 [sym_kRaise];
   ACTIONS 449 [sym_kRepeat]; ACTIONS 451 [sym_kString]; ACTIONS 453 [sym_kTry];
   ACTIONS 455 [sym_kVar]; ACTIONS 457 [sym_kWhile]; ACTIONS 459 [sym_kWith]].

(** State 309. *)
Definition ts_parse_table_309 : parse_row :=
  [STATE 6213 [sym_if]; STATE 6327 [sym_ifElse; sym_while; sym_repeat; sym_for; sym_foreach;
   sym_try; sym_case; sym_block; sym_asm; sym_with; sym_raise; sym_statement; sym_goto;
   sym__statement]; STATE 14593 [sym_ifTr; sym_ifElseTr; sym_whileTr; sym_repeatTr; sym_forTr;
   sym_foreachTr; sym_tryTr; sym_caseTr]; STATE 14251 [sym_blockTr]; STATE 14593 [sym_asmTr;
   sym_withTr; sym_raiseTr; sym_statementTr; sym_gotoTr; sym__statementTr];
   STATE 13915 [sym_assignment]; STATE 11785 [sym_varAssignDef]; STATE 13915 [sym_varDef;
   sym_constDef]; STATE 6166 [sym_label]; STATE 14593 [sym__statementsTr]; STATE 8019 [sym__expr;
   sym_exprConditional]; STATE 7478 [sym__ref; sym_lambda; sym_inherited; sym_exprDot;
   sym_exprDeref; sym_exprAs; sym_exprTpl; sym_exprSubscript; sym_exprCall];
   STATE 8019 [sym_exprBinary; sym_exprUnary]; STATE 7478 [sym_exprParens; sym_exprBrackets;
   sym__literal; sym_literalString]; STATE 6664 [sym__literalString; sym_literalChar];
   STATE 7478 [sym_literalNumber]; STATE 7742 [sym__literalInt; sym__literalFloat];
   STATE 1380 [sym__ppIf]; STATE 6327 [sym__ppStatementBlock];
   STATE 11840 [aux_sym_labeledStatement_repeat1]; STATE 863 [aux_sym__statementsTr_repeat1];
   STATE 6664 [aux_sym_literalString_repeat1]; ACTIONS 397 [anon_sym_SEMI];
   ACTIONS 2156 [anon_sym_COLON]; ACTIONS 399 [anon_sym_LBRACK]; ACTIONS 401 [anon_sym_LPAREN];
   ACTIONS 403 [aux_sym__literalString_token1]; ACTIONS 405 [anon_sym_POUND];
   ACTIONS 407 [aux_sym__literalInt_token1]; ACTIONS 409 [aux_sym__literalInt_token2;
   aux_sym__literalInt_token3]; ACTIONS 407 [aux_sym__literalFloat_token1];
   ACTIONS 411 [aux_sym_ppUsesBlock_token1]; ACTIONS 413 [sym_kAdd; sym_kSub];
   ACTIONS 415 [sym_kAt]; ACTIONS 417 [sym_kTrue; sym_kFalse]; ACTIONS 419 [sym_labelNumber];
   ACTIONS 3 [sym__space]; ACTIONS 5 [sym_ppDirective]; ACTIONS 3 [sym_comment];
   ACTIONS 417 [sym_ppFragmentExpr]; ACTIONS 397 [sym_ppFragmentStmt];
   ACTIONS 403 [sym__literalStringMultiline]; ACTIONS 421 [sym_identifier];
   ACTIONS 423 [sym_kSpecialize]; ACTIONS 427 [sym_kAsm]; ACTIONS 429 [sym_kBegin];
   ACTIONS 431 [sym_kCase]; ACTIONS 433 [sym_kConst]; ACTIONS 2158 [sym_kEnd];
   ACTIONS 437 [sym_kFor]; ACTIONS 439 [sym_kFunction]; ACTIONS 441 [sym_kGoto];
   ACTIONS 443 [sym_kIf]; ACTIONS 445 [sym_kInherited]; ACTIONS 417 [sym_kNil];
   ACTIONS 415 [sym_kNot]; ACTIONS 439 [sym_kProcedure]; ACTIONS 447 [sym_kRaise];
   ACTIONS 449 [sym_kRepeat]; ACTIONS 451 [sym_kString]; ACTIONS 453 [sym_kTry];
   ACTIONS 455 [sym_kVar]; ACTIONS 457 [sym_kWhile]; ACTIONS 459 [sym_kWith]].

(** State 310. *)
Definition ts_parse_table_310 : parse_row :=
  [STATE 6213 [sym_if]; STATE 6327 [sym_ifElse; sym_while; sym_repeat; sym_for; sym_foreach;
   sym_try; sym_case; sym_block; sym_asm; sym_with; sym_raise; sym_statement; sym_goto;
   sym__statement]; STATE 14602 [sym_ifTr; sym_ifElseTr; sym_whileTr; sym_repeatTr; sym_forTr;
   sym_foreachTr; sym_tryTr; sym_caseTr]; STATE 14251 [sym_blockTr]; STATE 14602 [sym_asmTr;
   sym_withTr; sym_raiseTr; sym_statementTr; sym_gotoTr; sym__statementTr];
   STATE 13915 [sym_assignment]; STATE 11785 [sym_varAssignDef]; STATE 13915 [sym_varDef;
   sym_constDef]; STATE 6166 [sym_label]; STATE 14602 [sym__statementsTr]; STATE 8019 [sym__expr;
   sym_exprConditional]; STATE 7478 [sym__ref; sym_lambda; sym_inherited; sym_exprDot;
   sym_exprDeref; sym_exprAs; sym_exprTpl; sym_exprSubscript; sym_exprCall];
   STATE 8019 [sym_exprBinary; sym_exprUnary]; STATE 7478 [sym_exprParens; sym_exprBrackets;
   sym__literal; sym_literalString]; STATE 6664 [sym__literalString; sym_literalChar];
   STATE 7478 [sym_literalNumber]; STATE 7742 [sym__literalInt; sym__literalFloat];
   STATE 1380 [sym__ppIf]; STATE 6327 [sym__ppStatementBlock];
   STATE 11840 [aux_sym_labeledStatement_repeat1]; STATE 863 [aux_sym__statementsTr_repeat1];
   STATE 6664 [aux_sym_literalString_repeat1]; ACTIONS 397 [anon_sym_SEMI];
   ACTIONS 2160 [anon_sym_COLON]; ACTIONS 399 [anon_sym_LBRACK]; ACTIONS 401 [anon_sym_LPAREN];
   ACTIONS 403 [aux_sym__literalString_token1]; ACTIONS 405 [anon_sym_POUND];
   ACTIONS 407 [aux_sym__literalInt_token1]; ACTIONS 409 [aux_sym__literalInt_token2;
   aux_sym__literalInt_token3]; ACTIONS 407 [aux_sym__literalFloat_token1];
   ACTIONS 411 [aux_sym_ppUsesBlock_token1]; ACTIONS 413 [sym_kAdd; sym_kSub];
   ACTIONS 415 [sym_kAt]; ACTIONS 417 [sym_kTrue; sym_kFalse]; ACTIONS 419 [sym_labelNumber];
   ACTIONS 3 [sym__space]; ACTIONS 5 [sym_ppDirective]; ACTIONS 3 [sym_comment];
   ACTIONS 417 [sym_ppFragmentExpr]; ACTIONS 397 [sym_ppFragmentStmt];
   ACTIONS 403 [sym__literalStringMultiline]; ACTIONS 421 [sym_identifier];
   ACTIONS 423 [sym_kSpecialize]; ACTIONS 427 [sym_kAsm]; ACTIONS 429 [sym_kBegin];
   ACTIONS 431 [sym_kCase]; ACTIONS 433 [sym_kConst]; ACTIONS 2162 [sym_kEnd];
   ACTIONS 437 [sym_kFor]; ACTIONS 439 [sym_kFunction]; ACTIONS 441 [sym_kGoto];
   ACTIONS 443 [sym_kIf]; ACTIONS 445 [sym_kInherited]; ACTIONS 417 [sym_kNil];
   ACTIONS 415 [sym_kNot]; ACTIONS 439 [sym_kProcedure]; ACTIONS 447 [sym_kRaise];
   ACTIONS 449 [sym_kRepeat]; ACTIONS 451 [sym_kString]; ACTIONS 453 [sym_kTry];
   ACTIONS 455 [sym_kVar]; ACTIONS 457 [sym_kWhile]; ACTIONS 459 [sym_kWith]].

(** State 311. *)
Definition ts_parse_table_311 : parse_row :=
  [STATE 6213 [sym_if]; STATE 6327 [sym_ifElse; sym_while; sym_repeat; sym_for; sym_foreach;
   sym_try; sym_case; sym_block; sym_asm; sym_with; sym_raise; sym_statement; sym_goto;
   sym__statement]; STATE 15991 [sym_ifTr; sym_ifElseTr; sym_whileTr; sym_repeatTr; sym_forTr;
   sym_foreachTr; sym_tryTr; sym_caseTr]; STATE 14251 [sym_blockTr]; STATE 15991 [sym_asmTr;
   sym_withTr; sym_raiseTr; sym_statementTr; sym_gotoTr; sym__statementTr];
   STATE 13915 [sym_assignment]; STATE 11785 [sym_varAssignDef]; STATE 13915 [sym_varDef;
   sym_constDef]; STATE 6166 [sym_label]; STATE 15991 [sym__statementsTr];
   STATE 14755 [sym_statementsTr]; STATE 8019 [sym__expr; sym_exprConditional];
   STATE 7478 [sym__ref; sym_lambda; sym_inherited; sym_exprDot; sym_exprDeref; sym_exprAs;
   sym_exprTpl; sym_exprSubscript; sym_exprCall]; STATE 8019 [sym_exprBinary; sym_exprUnary];
   STATE 7478 [sym_exprParens; sym_exprBrackets; sym__literal; sym_literalString];
   STATE 6664 [sym__literalString; sym_literalChar]; STATE 7478 [sym_literalNumber];
   STATE 7742 [sym__literalInt; sym__literalFloat]; STATE 1380 [sym__ppIf];
   STATE 6327 [sym__ppStatementBlock]; STATE 11840 [aux_sym_labeledStatement_repeat1];
   STATE 863 [aux_sym__statementsTr_repeat1]; STATE 6664 [aux_sym_literalString_repeat1];
   ACTIONS 397 [anon_sym_SEMI]; ACTIONS 399 [anon_sym_LBRACK]; ACTIONS 401 [anon_sym_LPAREN];
   ACTIONS 403 [aux_sym__literalString_token1]; ACTIONS 405 [anon_sym_POUND];
   ACTIONS 407 [aux_sym__literalInt_token1]; ACTIONS 409 [aux_sym__literalInt_token2;
   aux_sym__literalInt_token3]; ACTIONS 407 [aux_sym__literalFloat_token1];
   ACTIONS 411 [aux_sym_ppUsesBlock_token1]; ACTIONS 413 [sym_kAdd; sym_kSub];
   ACTIONS 415 [sym_kAt]; ACTIONS 417 [sym_kTrue; sym_kFalse]; ACTIONS 419 [sym_labelNumber];
   ACTIONS 3 [sym__space]; ACTIONS 5 [sym_ppDirective]; ACTIONS 3 [sym_comment];
   ACTIONS 417 [sym_ppFragmentExpr]; ACTIONS 397 [sym_ppFragmentStmt];
   ACTIONS 403 [sym__literalStringMultiline]; ACTIONS 421 [sym_identifier];
   ACTIONS 423 [sym_kSpecialize]; ACTIONS 427 [sym_kAsm]; ACTIONS 429 [sym_kBegin];
   ACTIONS 431 [sym_kCase]; ACTIONS 433 [sym_kConst]; ACTIONS 2164 [sym_kEnd];
   ACTIONS 437 [sym_kFor]; ACTIONS 439 [sym_kFunction]; ACTIONS 441 [sym_kGoto];
   ACTIONS 443 [sym_kIf]; ACTIONS 445 [sym_kInherited]; ACTIONS 417 [sym_kNil];
   ACTIONS 415 [sym_kNot]; ACTIONS 439 [sym_kProcedure]; ACTIONS 447 [sym_kRaise];
   ACTIONS 449 [sym_kRepeat]; ACTIONS 451 [sym_kString]; ACTIONS 453 [sym_kTry];
   ACTIONS 455 [sym_kVar]; ACTIONS 457 [sym_kWhile]; ACTIONS 459 [sym_kWith]].

(** State 312. *)
Definition ts_parse_table_312 : parse_row :=
  [STATE 6213 [sym_if]; STATE 6327 [sym_ifElse; sym_while; sym_repeat; sym_for; sym_foreach;
   sym_try; sym_case; sym_block; sym_asm; sym_with; sym_raise; sym_statement; sym_goto;
   sym__statement]; STATE 15991 [sym_ifTr; sym_ifElseTr; sym_whileTr; sym_repeatTr; sym_forTr;
   sym_foreachTr; sym_tryTr; sym_caseTr]; STATE 14251 [sym_blockTr]; STATE 15991 [sym_asmTr;
   sym_withTr; sym_raiseTr; sym_statementTr; sym_gotoTr; sym__statementTr];
   STATE 13915 [sym_assignment]; STATE 11785 [sym_varAssignDef]; STATE 13915 [sym_varDef;
   sym_constDef]; STATE 6166 [sym_label]; STATE 15991 [sym__statementsTr];
   STATE 14806 [sym_statementsTr]; STATE 8019 [sym__expr; sym_exprConditional];
   STATE 7478 [sym__ref; sym_lambda; sym_inherited; sym_exprDot; sym_exprDeref; sym_exprAs;
   sym_exprTpl; sym_exprSubscript; sym_exprCall]; STATE 8019 [sym_exprBinary; sym_exprUnary];
   STATE 7478 [sym_exprParens; sym_exprBrackets; sym__literal; sym_literalString];
   STATE 6664 [sym__literalString; sym_literalChar]; STATE 7478 [sym_literalNumber];
   STATE 7742 [sym__literalInt; sym__literalFloat]; STATE 1380 [sym__ppIf];
   STATE 6327 [sym__ppStatementBlock]; STATE 11840 [aux_sym_labeledStatement_repeat1];
   STATE 863 [aux_sym__statementsTr_repeat1]; STATE 6664 [aux_sym_literalString_repeat1];
   ACTIONS 397 [anon_sym_SEMI]; ACTIONS 399 [anon_sym_LBRACK]; ACTIONS 401 [anon_sym_LPAREN];
   ACTIONS 403 [aux_sym__literalString_token1]; ACTIONS 405 [anon_sym_POUND];
   ACTIONS 407 [aux_sym__literalInt_token1]; ACTIONS 409 [aux_sym__literalInt_token2;
   aux_sym__literalInt_token3]; ACTIONS 407 [aux_sym__literalFloat_token1];
   ACTIONS 411 [aux_sym_ppUsesBlock_token1]; ACTIONS 413 [sym_kAdd; sym_kSub];
   ACTIONS 415 [sym_kAt]; ACTIONS 417 [sym_kTrue; sym_kFalse]; ACTIONS 419 [sym_labelNumber];
   ACTIONS 3 [sym__space]; ACTIONS 5 [sym_ppDirective]; ACTIONS 3 [sym_comment];
   ACTIONS 417 [sym_ppFragmentExpr]; ACTIONS 397 [sym_ppFragmentStmt];
   ACTIONS 403 [sym__literalStringMultiline]; ACTIONS 421 [sym_identifier];
   ACTIONS 423 [sym_kSpecialize]; ACTIONS 427 [sym_kAsm]; ACTIONS 429 [sym_kBegin];
   ACTIONS 431 [sym_kCase]; ACTIONS 433 [sym_kConst]; ACTIONS 2166 [sym_kEnd];
   ACTIONS 437 [sym_kFor]; ACTIONS 439 [sym_kFunction]; ACTIONS 441 [sym_kGoto];
   ACTIONS 443 [sym_kIf]; ACTIONS 445 [sym_kInherited]; ACTIONS 417 [sym_kNil];
   ACTIONS 415 [sym_kNot]; ACTIONS 439 [sym_kProcedure]; ACTIONS 447 [sym_kRaise];
   ACTIONS 449 [sym_kRepeat]; ACTIONS 451 [sym_kString]; ACTIONS 453 [sym_kTry];
   ACTIONS 455 [sym_kVar]; ACTIONS 457 [sym_kWhile]; ACTIONS 459 [sym_kWith]].

(** State 313. *)
Definition ts_parse_table_313 : parse_row :=
  [STATE 6213 [sym_if]; STATE 6327 [sym_ifElse; sym_while; sym_repeat; sym_for; sym_foreach;
   sym_try; sym_case; sym_block; sym_asm; sym_with; sym_raise; sym_statement; sym_goto;
   sym__statement]; STATE 14822 [sym_ifTr; sym_ifElseTr; sym_whileTr; sym_repeatTr; sym_forTr;
   sym_foreachTr; sym_tryTr; sym_caseTr]; STATE 14251 [sym_blockTr]; STATE 14822 [sym_asmTr;
   sym_withTr; sym_raiseTr; sym_statementTr; sym_gotoTr; sym__statementTr];
   STATE 13915 [sym_assignment]; STATE 11785 [sym_varAssignDef]; STATE 13915 [sym_varDef;
   sym_constDef]; STATE 6166 [sym_label]; STATE 14822 [sym__statementsTr]; STATE 8019 [sym__expr;
   sym_exprConditional]; STATE 7478 [sym__ref; sym_lambda; sym_inherited; sym_exprDot;
   sym_exprDeref; sym_exprAs; sym_exprTpl; sym_exprSubscript; sym_exprCall];
   STATE 8019 [sym_exprBinary; sym_exprUnary]; STATE 7478 [sym_exprParens; sym_exprBrackets;
   sym__literal; sym_literalString]; STATE 6664 [sym__literalString; sym_literalChar];
   STATE 7478 [sym_literalNumber]; STATE 7742 [sym__literalInt; sym__literalFloat];
   STATE 1380 [sym__ppIf]; STATE 6327 [sym__ppStatementBlock];
   STATE 11840 [aux_sym_labeledStatement_repeat1]; STATE 863 [aux_sym__statementsTr_repeat1];
   STATE 6664 [aux_sym_literalString_repeat1]; ACTIONS 397 [anon_sym_SEMI];
   ACTIONS 2168 [anon_sym_COLON]; ACTIONS 399 [anon_sym_LBRACK]; ACTIONS 401 [anon_sym_LPAREN];
   ACTIONS 403 [aux_sym__literalString_token1]; ACTIONS 405 [anon_sym_POUND];
   ACTIONS 407 [aux_sym__literalInt_token1]; ACTIONS 409 [aux_sym__literalInt_token2;
   aux_sym__literalInt_token3]; ACTIONS 407 [aux_sym__literalFloat_token1];
   ACTIONS 411 [aux_sym_ppUsesBlock_token1]; ACTIONS 413 [sym_kAdd; sym_kSub];
   ACTIONS 415 [sym_kAt]; ACTIONS 417 [sym_kTrue; sym_kFalse]; ACTIONS 419 [sym_labelNumber];
   ACTIONS 3 [sym__space]; ACTIONS 5 [sym_ppDirective]; ACTIONS 3 [sym_comment];
   ACTIONS 417 [sym_ppFragmentExpr]; ACTIONS 397 [sym_ppFragmentStmt];
   ACTIONS 403 [sym__literalStringMultiline]; ACTIONS 421 [sym_identifier];
   ACTIONS 423 [sym_kSpecialize]; ACTIONS 427 [sym_kAsm]; ACTIONS 429 [sym_kBegin];
   ACTIONS 431 [sym_kCase]; ACTIONS 433 [sym_kConst]; ACTIONS 2170 [sym_kEnd];
   ACTIONS 437 [sym_kFor]; ACTIONS 439 [sym_kFunction]; ACTIONS 441 [sym_kGoto];
   ACTIONS 443 [sym_kIf]; ACTIONS 445 [sym_kInherited]; ACTIONS 417 [sym_kNil];
   ACTIONS 415 [sym_kNot]; ACTIONS 439 [sym_kProcedure]; ACTIONS 447 [sym_kRaise];
   ACTIONS 449 [sym_kRepeat]; ACTIONS 451 [sym_kString]; ACTIONS 453 [sym_kTry];
   ACTIONS 455 [sym_kVar]; ACTIONS 457 [sym_kWhile]; ACTIONS 459 [sym_kWith]].

(** State 314. *)
Definition ts_parse_table_314 : parse_row :=
  [STATE 6213 [sym_if]; STATE 6327 [sym_ifElse; sym_while; sym_repeat; sym_for; sym_foreach;
   sym_try; sym_case; sym_block; sym_asm; sym_with; sym_raise; sym_statement; sym_goto;
   sym__statement]; STATE 14836 [sym_ifTr; sym_ifElseTr; sym_whileTr; sym_repeatTr; sym_forTr;
   sym_foreachTr; sym_tryTr; sym_caseTr]; STATE 14251 [sym_blockTr]; STATE 14836 [sym_asmTr;
   sym_withTr; sym_raiseTr; sym_statementTr; sym_gotoTr; sym__statementTr];
   STATE 13915 [sym_assignment]; STATE 11785 [sym_varAssignDef]; STATE 13915 [sym_varDef;
   sym_constDef]; STATE 6166 [sym_label]; STATE 14836 [sym__statementsTr]; STATE 8019 [sym__expr;
   sym_exprConditional]; STATE 7478 [sym__ref; sym_lambda; sym_inherited; sym_exprDot;
   sym_exprDeref; sym_exprAs; sym_exprTpl; sym_exprSubscript; sym_exprCall];
   STATE 8019 [sym_exprBinary; sym_exprUnary]; STATE 7478 [sym_exprParens; sym_exprBrackets;
   sym__literal; sym_literalString]; STATE 6664 [sym__literalString; sym_literalChar];
   STATE 7478 [sym_literalNumber]; STATE 7742 [sym__literalInt; sym__literalFloat];
   STATE 1380 [sym__ppIf]; STATE 6327 [sym__ppStatementBlock];
   STATE 11840 [aux_sym_labeledStatement_repeat1]; STATE 863 [aux_sym__statementsTr_repeat1];
   STATE 6664 [aux_sym_literalString_repeat1]; ACTIONS 397 [anon_sym_SEMI];
   ACTIONS 2172 [anon_sym_COLON]; ACTIONS 399 [anon_sym_LBRACK]; ACTIONS 401 [anon_sym_LPAREN];
   ACTIONS 403 [aux_sym__literalString_token1]; ACTIONS 405 [anon_sym_POUND];
   ACTIONS 407 [aux_sym__literalInt_token1]; ACTIONS 409 [aux_sym__literalInt_token2;
   aux_sym__literalInt_token3]; ACTIONS 407 [aux_sym__literalFloat_token1];
   ACTIONS 411 [aux_sym_ppUsesBlock_token1]; ACTIONS 413 [sym_kAdd; sym_kSub];
   ACTIONS 415 [sym_kAt]; ACTIONS 417 [sym_kTrue; sym_kFalse]; ACTIONS 419 [sym_labelNumber];
   ACTIONS 3 [sym__space]; ACTIONS 5 [sym_ppDirective]; ACTIONS 3 [sym_comment];
   ACTIONS 417 [sym_ppFragmentExpr]; ACTIONS 397 [sym_ppFragmentStmt];
   ACTIONS 403 [sym__literalStringMultiline]; ACTIONS 421 [sym_identifier];
   ACTIONS 423 [sym_kSpecialize]; ACTIONS 427 [sym_kAsm]; ACTIONS 429 [sym_kBegin];
   ACTIONS 431 [sym_kCase]; ACTIONS 433 [sym_kConst]; ACTIONS 2174 [sym_kEnd];
   ACTIONS 437 [sym_kFor]; ACTIONS 439 [sym_kFunction]; ACTIONS 441 [sym_kGoto];
   ACTIONS 443 [sym_kIf]; ACTIONS 445 [sym_kInherited]; ACTIONS 417 [sym_kNil];
   ACTIONS 415 [sym_kNot]; ACTIONS 439 [sym_kProcedure]; ACTIONS 447 [sym_kRaise];
   ACTIONS 449 [sym_kRepeat]; ACTIONS 451 [sym_kString]; ACTIONS 453 [sym_kTry];
   ACTIONS 455 [sym_kVar]; ACTIONS 457 [sym_kWhile]; ACTIONS 459 [sym_kWith]].

(** State 315. *)
Definition ts_parse_table_315 : parse_row :=
  [STATE 6213 [sym_if]; STATE 6327 [sym_ifElse; sym_while; sym_repeat; sym_for; sym_foreach;
   sym_try; sym_case; sym_block; sym_asm; sym_with; sym_raise; sym_statement; sym_goto;
   sym__statement]; STATE 14842 [sym_ifTr; sym_ifElseTr; sym_whileTr; sym_repeatTr; sym_forTr;
   sym_foreachTr; sym_tryTr; sym_caseTr]; STATE 14251 [sym_blockTr]; STATE 14842 [sym_asmTr;
   sym_withTr; sym_raiseTr; sym_statementTr; sym_gotoTr; sym__statementTr];
   STATE 13915 [sym_assignment]; STATE 11785 [sym_varAssignDef]; STATE 13915 [sym_varDef;
   sym_constDef]; STATE 6166 [sym_label]; STATE 14842 [sym__statementsTr]; STATE 8019 [sym__expr;
   sym_exprConditional]; STATE 7478 [sym__ref; sym_lambda; sym_inherited; sym_exprDot;
   sym_exprDeref; sym_exprAs; sym_exprTpl; sym_exprSubscript; sym_exprCall];
   STATE 8019 [sym_exprBinary; sym_exprUnary]; STATE 7478 [sym_exprParens; sym_exprBrackets;
   sym__literal; sym_literalString]; STATE 6664 [sym__literalString; sym_literalChar];
   STATE 7478 [sym_literalNumber]; STATE 7742 [sym__literalInt; sym__literalFloat];
   STATE 1380 [sym__ppIf]; STATE 6327 [sym__ppStatementBlock];
   STATE 11840 [aux_sym_labeledStatement_repeat1]; STATE 863 [aux_sym__statementsTr_repeat1];
   STATE 6664 [aux_sym_literalString_repeat1]; ACTIONS 397 [anon_sym_SEMI];
   ACTIONS 2176 [anon_sym_COLON]; ACTIONS 399 [anon_sym_LBRACK]; ACTIONS 401 [anon_sym_LPAREN];
   ACTIONS 403 [aux_sym__literalString_token1]; ACTIONS 405 [anon_sym_POUND];
   ACTIONS 407 [aux_sym__literalInt_token1]; ACTIONS 409 [aux_sym__literalInt_token2;
   aux_sym__literalInt_token3]; ACTIONS 407 [aux_sym__literalFloat_token1];
   ACTIONS 411 [aux_sym_ppUsesBlock_token1]; ACTIONS 413 [sym_kAdd; sym_kSub];
   ACTIONS 415 [sym_kAt]; ACTIONS 417 [sym_kTrue; sym_kFalse]; ACTIONS 419 [sym_labelNumber];
   ACTIONS 3 [sym__space]; ACTIONS 5 [sym_ppDirective]; ACTIONS 3 [sym_comment];
   ACTIONS 417 [sym_ppFragmentExpr]; ACTIONS 397 [sym_ppFragmentStmt];
   ACTIONS 403 [sym__literalStringMultiline]; ACTIONS 421 [sym_identifier];
   ACTIONS 423 [sym_kSpecialize]; ACTIONS 427 [sym_kAsm]; ACTIONS 429 [sym_kBegin];
   ACTIONS 431 [sym_kCase]; ACTIONS 433 [sym_kConst]; ACTIONS 2178 [sym_kEnd];
   ACTIONS 437 [sym_kFor]; ACTIONS 439 [sym_kFunction]; ACTIONS 441 [sym_kGoto];
   ACTIONS 443 [sym_kIf]; ACTIONS 445 [sym_kInherited]; ACTIONS 417 [sym_kNil];
   ACTIONS 415 [sym_kNot]; ACTIONS 439 [sym_kProcedure]; ACTIONS 447 [sym_kRaise];
   ACTIONS 449 [sym_kRepeat]; ACTIONS 451 [sym_kString]; ACTIONS 453 [sym_kTry];
   ACTIONS 455 [sym_kVar]; ACTIONS 457 [sym_kWhile]; ACTIONS 459 [sym_kWith]].

(** State 316. *)
Definition ts_parse_table_316 : parse_row :=
  [STATE 6213 [sym_if]; STATE 6327 [sym_ifElse; sym_while; sym_repeat; sym_for; sym_foreach;
   sym_try; sym_case; sym_block; sym_asm; sym_with; sym_raise; sym_statement; sym_goto;
   sym__statement]; STATE 15991 [sym_ifTr; sym_ifElseTr; sym_whileTr; sym_repeatTr; sym_forTr;
   sym_foreachTr; sym_tryTr; sym_caseTr]; STATE 14251 [sym_blockTr]; STATE 15991 [sym_asmTr;
   sym_withTr; sym_raiseTr; sym_statementTr; sym_gotoTr; sym__statementTr];
   STATE 13915 [sym_assignment]; STATE 11785 [sym_varAssignDef]; STATE 13915 [sym_varDef;
   sym_constDef]; STATE 6166 [sym_label]; STATE 15991 [sym__statementsTr];
   STATE 14925 [sym_statementsTr]; STATE 8019 [sym__expr; sym_exprConditional];
   STATE 7478 [sym__ref; sym_lambda; sym_inherited; sym_exprDot; sym_exprDeref; sym_exprAs;
   sym_exprTpl; sym_exprSubscript; sym_exprCall]; STATE 8019 [sym_exprBinary; sym_exprUnary];
   STATE 7478 [sym_exprParens; sym_exprBrackets; sym__literal; sym_literalString];
   STATE 6664 [sym__literalString; sym_literalChar]; STATE 7478 [sym_literalNumber];
   STATE 7742 [sym__literalInt; sym__literalFloat]; STATE 1380 [sym__ppIf];
   STATE 6327 [sym__ppStatementBlock]; STATE 11840 [aux_sym_labeledStatement_repeat1];
   STATE 863 [aux_sym__statementsTr_repeat1]; STATE 6664 [aux_sym_literalString_repeat1];
   ACTIONS 397 [anon_sym_SEMI]; ACTIONS 399 [anon_sym_LBRACK]; ACTIONS 401 [anon_sym_LPAREN];
   ACTIONS 403 [aux_sym__literalString_token1]; ACTIONS 405 [anon_sym_POUND];
   ACTIONS 407 [aux_sym__literalInt_token1]; ACTIONS 409 [aux_sym__literalInt_token2;
   aux_sym__literalInt_token3]; ACTIONS 407 [aux_sym__literalFloat_token1];
   ACTIONS 411 [aux_sym_ppUsesBlock_token1]; ACTIONS 413 [sym_kAdd; sym_kSub];
   ACTIONS 415 [sym_kAt]; ACTIONS 417 [sym_kTrue; sym_kFalse]; ACTIONS 419 [sym_labelNumber];
   ACTIONS 3 [sym__space]; ACTIONS 5 [sym_ppDirective]; ACTIONS 3 [sym_comment];
   ACTIONS 417 [sym_ppFragmentExpr]; ACTIONS 397 [sym_ppFragmentStmt];
   ACTIONS 403 [sym__literalStringMultiline]; ACTIONS 421 [sym_identifier];
   ACTIONS 423 [sym_kSpecialize]; ACTIONS 427 [sym_kAsm]; ACTIONS 429 [sym_kBegin];
   ACTIONS 431 [sym_kCase]; ACTIONS 433 [sym_kConst]; ACTIONS 2180 [sym_kEnd];
   ACTIONS 437 [sym_kFor]; ACTIONS 439 [sym_kFunction]; ACTIONS 441 [sym_kGoto];
   ACTIONS 443 [sym_kIf]; ACTIONS 445 [sym_kInherited]; ACTIONS 417 [sym_kNil];
   ACTIONS 415 [sym_kNot]; ACTIONS 439 [sym_kProcedure]; ACTIONS 447 [sym_kRaise];
   ACTIONS 449 [sym_kRepeat]; ACTIONS 451 [sym_kString]; ACTIONS 453 [sym_kTry];
   ACTIONS 455 [sym_kVar]; ACTIONS 457 [sym_kWhile]; ACTIONS 459 [sym_kWith]].

(** State 317. *)
Definition ts_parse_table_317 : parse_row :=
  [STATE 6213 [sym_if]; STATE 6327 [sym_ifElse; sym_while; sym_repeat; sym_for; sym_foreach;
   sym_try; sym_case; sym_block; sym_asm; sym_with; sym_raise; sym_statement; sym_goto;
   sym__statement]; STATE 15991 [sym_ifTr; sym_ifElseTr; sym_whileTr; sym_repeatTr; sym_forTr;
   sym_foreachTr; sym_tryTr; sym_caseTr]; STATE 14251 [sym_blockTr]; STATE 15991 [sym_asmTr;
   sym_withTr; sym_raiseTr; sym_statementTr; sym_gotoTr; sym__statementTr];
   STATE 13915 [sym_assignment]; STATE 11785 [sym_varAssignDef]; STATE 13915 [sym_varDef;
   sym_constDef]; STATE 6166 [sym_label]; STATE 15991 [sym__statementsTr];
   STATE 14978 [sym_statementsTr]; STATE 8019 [sym__expr; sym_exprConditional];
   STATE 7478 [sym__ref; sym_lambda; sym_inherited; sym_exprDot; sym_exprDeref; sym_exprAs;
   sym_exprTpl; sym_exprSubscript; sym_exprCall]; STATE 8019 [sym_exprBinary; sym_exprUnary];
   STATE 7478 [sym_exprParens; sym_exprBrackets; sym__literal; sym_literalString];
   STATE 6664 [sym__literalString; sym_literalChar]; STATE 7478 [sym_literalNumber];
   STATE 7742 [sym__literalInt; sym__literalFloat]; STATE 1380 [sym__ppIf];
   STATE 6327 [sym__ppStatementBlock]; STATE 11840 [aux_sym_labeledStatement_repeat1];
   STATE 863 [aux_sym__statementsTr_repeat1]; STATE 6664 [aux_sym_literalString_repeat1];
   ACTIONS 397 [anon_sym_SEMI]; ACTIONS 399 [anon_sym_LBRACK]; ACTIONS 401 [anon_sym_LPAREN];
   ACTIONS 403 [aux_sym__literalString_token1]; ACTIONS 405 [anon_sym_POUND];
   ACTIONS 407 [aux_sym__literalInt_token1]; ACTIONS 409 [aux_sym__literalInt_token2;
   aux_sym__literalInt_token3]; ACTIONS 407 [aux_sym__literalFloat_token1];
   ACTIONS 411 [aux_sym_ppUsesBlock_token1]; ACTIONS 413 [sym_kAdd; sym_kSub];
   ACTIONS 415 [sym_kAt]; ACTIONS 417 [sym_kTrue; sym_kFalse]; ACTIONS 419 [sym_labelNumber];
   ACTIONS 3 [sym__space]; ACTIONS 5 [sym_ppDirective]; ACTIONS 3 [sym_comment];
   ACTIONS 417 [sym_ppFragmentExpr]; ACTIONS 397 [sym_ppFragmentStmt];
   ACTIONS 403 [sym__literalStringMultiline]; ACTIONS 421 [sym_identifier];
   ACTIONS 423 [sym_kSpecialize]; ACTIONS 427 [sym_kAsm]; ACTIONS 429 [sym_kBegin];
   ACTIONS 431 [sym_kCase]; ACTIONS 433 [sym_kConst]; ACTIONS 2182 [sym_kEnd];
   ACTIONS 437 [sym_kFor]; ACTIONS 439 [sym_kFunction]; ACTIONS 441 [sym_kGoto];
   ACTIONS 443 [sym_kIf]; ACTIONS 445 [sym_kInherited]; ACTIONS 417 [sym_kNil];
   ACTIONS 415 [sym_kNot]; ACTIONS 439 [sym_kProcedure]; ACTIONS 447 [sym_kRaise];
   ACTIONS 449 [sym_kRepeat]; ACTIONS 451 [sym_kString]; ACTIONS 453 [sym_kTry];
   ACTIONS 455 [sym_kVar]; ACTIONS 457 [sym_kWhile]; ACTIONS 459 [sym_kWith]].

(** State 318. *)
Definition ts_parse_table_318 : parse_row :=
  [STATE 6213 [sym_if]; STATE 6327 [sym_ifElse; sym_while; sym_repeat; sym_for; sym_foreach;
   sym_try; sym_case; sym_block; sym_asm; sym_with; sym_raise; sym_statement; sym_goto;
   sym__statement]; STATE 14985 [sym_ifTr; sym_ifElseTr; sym_whileTr; sym_repeatTr; sym_forTr;
   sym_foreachTr; sym_tryTr; sym_caseTr]; STATE 14251 [sym_blockTr]; STATE 14985 [sym_asmTr;
   sym_withTr; sym_raiseTr; sym_statementTr; sym_gotoTr; sym__statementTr];
   STATE 13915 [sym_assignment]; STATE 11785 [sym_varAssignDef]; STATE 13915 [sym_varDef;
   sym_constDef]; STATE 6166 [sym_label]; STATE 14985 [sym__statementsTr]; STATE 8019 [sym__expr;
   sym_exprConditional]; STATE 7478 [sym__ref; sym_lambda; sym_inherited; sym_exprDot;
   sym_exprDeref; sym_exprAs; sym_exprTpl; sym_exprSubscript; sym_exprCall];
   STATE 8019 [sym_exprBinary; sym_exprUnary]; STATE 7478 [sym_exprParens; sym_exprBrackets;
   sym__literal; sym_literalString]; STATE 6664 [sym__literalString; sym_literalChar];
   STATE 7478 [sym_literalNumber]; STATE 7742 [sym__literalInt; sym__literalFloat];
   STATE 1380 [sym__ppIf]; STATE 6327 [sym__ppStatementBlock];
   STATE 11840 [aux_sym_labeledStatement_repeat1]; STATE 863 [aux_sym__statementsTr_repeat1];
   STATE 6664 [aux_sym_literalString_repeat1]; ACTIONS 397 [anon_sym_SEMI];
   ACTIONS 2184 [anon_sym_COLON]; ACTIONS 399 [anon_sym_LBRACK]; ACTIONS 401 [anon_sym_LPAREN];
   ACTIONS 403 [aux_sym__literalString_token1]; ACTIONS 405 [anon_sym_POUND];
   ACTIONS 407 [aux_sym__literalInt_token1]; ACTIONS 409 [aux_sym__literalInt_token2;
   aux_sym__literalInt_token3]; ACTIONS 407 [aux_sym__literalFloat_token1];
   ACTIONS 411 [aux_sym_ppUsesBlock_token1]; ACTIONS 413 [sym_kAdd; sym_kSub];
   ACTIONS 415 [sym_kAt]; ACTIONS 417 [sym_kTrue; sym_kFalse]; ACTIONS 419 [sym_labelNumber];
   ACTIONS 3 [sym__space]; ACTIONS 5 [sym_ppDirective]; ACTIONS 3 [sym_comment];
   ACTIONS 417 [sym_ppFragmentExpr]; ACTIONS 397 [sym_ppFragmentStmt];
   ACTIONS 403 [sym__literalStringMultiline]; ACTIONS 421 [sym_identifier];
   ACTIONS 423 [sym_kSpecialize]; ACTIONS 427 [sym_kAsm]; ACTIONS 429 [sym_kBegin];
   ACTIONS 431 [sym_kCase]; ACTIONS 433 [sym_kConst]; ACTIONS 2186 [sym_kEnd];
   ACTIONS 437 [sym_kFor]; ACTIONS 439 [sym_kFunction]; ACTIONS 441 [sym_kGoto];
   ACTIONS 443 [sym_kIf]; ACTIONS 445 [sym_kInherited]; ACTIONS 417 [sym_kNil];
   ACTIONS 415 [sym_kNot]; ACTIONS 439 [sym_kProcedure]; ACTIONS 447 [sym_kRaise];
   ACTIONS 449 [sym_kRepeat]; ACTIONS 451 [sym_kString]; ACTIONS 453 [sym_kTry];
   ACTIONS 455 [sym_kVar]; ACTIONS 457 [sym_kWhile]; ACTIONS 459 [sym_kWith]].

(** State 319. *)
Definition ts_parse_table_319 : parse_row :=
  [STATE 6213 [sym_if]; STATE 6327 [sym_ifElse; sym_while; sym_repeat; sym_for; sym_foreach;
   sym_try; sym_case; sym_block; sym_asm; sym_with; sym_raise; sym_statement; sym_goto;
   sym__statement]; STATE 14992 [sym_ifTr; sym_ifElseTr; sym_whileTr; sym_repeatTr; sym_forTr;
   sym_foreachTr; sym_tryTr; sym_caseTr]; STATE 14251 [sym_blockTr]; STATE 14992 [sym_asmTr;
   sym_withTr; sym_raiseTr; sym_statementTr; sym_gotoTr; sym__statementTr];
   STATE 13915 [sym_assignment]; STATE 11785 [sym_varAssignDef]; STATE 13915 [sym_varDef;
   sym_constDef]; STATE 6166 [sym_label]; STATE 14992 [sym__statementsTr]; STATE 8019 [sym__expr;
   sym_exprConditional]; STATE 7478 [sym__ref; sym_lambda; sym_inherited; sym_exprDot;
   sym_exprDeref; sym_exprAs; sym_exprTpl; sym_exprSubscript; sym_exprCall];
   STATE 8019 [sym_exprBinary; sym_exprUnary]; STATE 7478 [sym_exprParens; sym_exprBrackets;
   sym__literal; sym_literalString]; STATE 6664 [sym__literalString; sym_literalChar];
   STATE 7478 [sym_literalNumber]; STATE 7742 [sym__literalInt; sym__literalFloat];
   STATE 1380 [sym__ppIf]; STATE 6327 [sym__ppStatementBlock];
   STATE 11840 [aux_sym_labeledStatement_repeat1]; STATE 863 [aux_sym__statementsTr_repeat1];
   STATE 6664 [aux_sym_literalString_repeat1]; ACTIONS 397 [anon_sym_SEMI];
   ACTIONS 2188 [anon_sym_COLON]; ACTIONS 399 [anon_sym_LBRACK]; ACTIONS 401 [anon_sym_LPAREN];
   ACTIONS 403 [aux_sym__literalString_token1]; ACTIONS 405 [anon_sym_POUND];
   ACTIONS 407 [aux_sym__literalInt_token1]; ACTIONS 409 [aux_sym__literalInt_token2;
   aux_sym__literalInt_token3]; ACTIONS 407 [aux_sym__literalFloat_token1];
   ACTIONS 411 [aux_sym_ppUsesBlock_token1]; ACTIONS 413 [sym_kAdd; sym_kSub];
   ACTIONS 415 [sym_kAt]; ACTIONS 417 [sym_kTrue; sym_kFalse]; ACTIONS 419 [sym_labelNumber];
   ACTIONS 3 [sym__space]; ACTIONS 5 [sym_ppDirective]; ACTIONS 3 [sym_comment];
   ACTIONS 417 [sym_ppFragmentExpr]; ACTIONS 397 [sym_ppFragmentStmt];
   ACTIONS 403 [sym__literalStringMultiline]; ACTIONS 421 [sym_identifier];
   ACTIONS 423 [sym_kSpecialize]; ACTIONS 427 [sym_kAsm]; ACTIONS 429 [sym_kBegin];
   ACTIONS 431 [sym_kCase]; ACTIONS 433 [sym_kConst]; ACTIONS 2190 [sym_kEnd];
   ACTIONS 437 [sym_kFor]; ACTIONS 439 [sym_kFunction]; ACTIONS 441 [sym_kGoto];
   ACTIONS 443 [sym_kIf]; ACTIONS 445 [sym_kInherited]; ACTIONS 417 [sym_kNil];
   ACTIONS 415 [sym_kNot]; ACTIONS 439 [sym_kProcedure]; ACTIONS 447 [sym_kRaise];
   ACTIONS 449 [sym_kRepeat]; ACTIONS 451 [sym_kString]; ACTIONS 453 [sym_kTry];
   ACTIONS 455 [sym_kVar]; ACTIONS 457 [sym_kWhile]; ACTIONS 459 [sym_kWith]].

(** State 320. *)
Definition ts_parse_table_320 : parse_row :=
  [STATE 6213 [sym_if]; STATE 6327 [sym_ifElse; sym_while; sym_repeat; sym_for; sym_foreach;
   sym_try; sym_case; sym_block; sym_asm; sym_with; sym_raise; sym_statement; sym_goto;
   sym__statement]; STATE 15001 [sym_ifTr; sym_ifElseTr; sym_whileTr; sym_repeatTr; sym_forTr;
   sym_foreachTr; sym_tryTr; sym_caseTr]; STATE 14251 [sym_blockTr]; STATE 15001 [sym_asmTr;
   sym_withTr; sym_raiseTr; sym_statementTr; sym_gotoTr; sym__statementTr];
   STATE 13915 [sym_assignment]; STATE 11785 [sym_varAssignDef]; STATE 13915 [sym_varDef;
   sym_constDef]; STATE 6166 [sym_label]; STATE 15001 [sym__statementsTr]; STATE 8019 [sym__expr;
   sym_exprConditional]; STATE 7478 [sym__ref; sym_lambda; sym_inherited; sym_exprDot;
   sym_exprDeref; sym_exprAs; sym_exprTpl; sym_exprSubscript; sym_exprCall];
   STATE 8019 [sym_exprBinary; sym_exprUnary]; STATE 7478 [sym_exprParens; sym_exprBrackets;
   sym__literal; sym_literalString]; STATE 6664 [sym__literalString; sym_literalChar];
   STATE 7478 [sym_literalNumber]; STATE 7742 [sym__literalInt; sym__literalFloat];
   STATE 1380 [sym__ppIf]; STATE 6327 [sym__ppStatementBlock];
   STATE 11840 [aux_sym_labeledStatement_repeat1]; STATE 863 [aux_sym__statementsTr_repeat1];
   STATE 6664 [aux_sym_literalString_repeat1]; ACTIONS 397 [anon_sym_SEMI];
   ACTIONS 2192 [anon_sym_COLON]; ACTIONS 399 [anon_sym_LBRACK]; ACTIONS 401 [anon_sym_LPAREN];
   ACTIONS 403 [aux_sym__literalString_token1]; ACTIONS 405 [anon_sym_POUND];
   ACTIONS 407 [aux_sym__literalInt_token1]; ACTIONS 409 [aux_sym__literalInt_token2;
   aux_sym__literalInt_token3]; ACTIONS 407 [aux_sym__literalFloat_token1];
   ACTIONS 411 [aux_sym_ppUsesBlock_token1]; ACTIONS 413 [sym_kAdd; sym_kSub];
   ACTIONS 415 [sym_kAt]; ACTIONS 417 [sym_kTrue; sym_kFalse]; ACTIONS 419 [sym_labelNumber];
   ACTIONS 3 [sym__space]; ACTIONS 5 [sym_ppDirective]; ACTIONS 3 [sym_comment];
   ACTIONS 417 [sym_ppFragmentExpr]; ACTIONS 397 [sym_ppFragmentStmt];
   ACTIONS 403 [sym__literalStringMultiline]; ACTIONS 421 [sym_identifier];
   ACTIONS 423 [sym_kSpecialize]; ACTIONS 427 [sym_kAsm]; ACTIONS 429 [sym_kBegin];
   ACTIONS 431 [sym_kCase]; ACTIONS 433 [sym_kConst]; ACTIONS 2194 [sym_kEnd];
   ACTIONS 437 [sym_kFor]; ACTIONS 439 [sym_kFunction]; ACTIONS 441 [sym_kGoto];
   ACTIONS 443 [sym_kIf]; ACTIONS 445 [sym_kInherited]; ACTIONS 417 [sym_kNil];
   ACTIONS 415 [sym_kNot]; ACTIONS 439 [sym_kProcedure]; ACTIONS 447 [sym_kRaise];
   ACTIONS 449 [sym_kRepeat]; ACTIONS 451 [sym_kString]; ACTIONS 453 [sym_kTry];
   ACTIONS 455 [sym_kVar]; ACTIONS 457 [sym_kWhile]; ACTIONS 459 [sym_kWith]].

(** State 321. *)
Definition ts_parse_table_321 : parse_row :=
  [STATE 6213 [sym_if]; STATE 6327 [sym_ifElse; sym_while; sym_repeat; sym_for; sym_foreach;
   sym_try; sym_case; sym_block; sym_asm; sym_with; sym_raise; sym_statement; sym_goto;
   sym__statement]; STATE 15991 [sym_ifTr; sym_ifElseTr; sym_whileTr; sym_repeatTr; sym_forTr;
   sym_foreachTr; sym_tryTr; sym_caseTr]; STATE 14251 [sym_blockTr]; STATE 15991 [sym_asmTr;
   sym_withTr; sym_raiseTr; sym_statementTr; sym_gotoTr; sym__statementTr];
   STATE 13915 [sym_assignment]; STATE 11785 [sym_varAssignDef]; STATE 13915 [sym_varDef;
   sym_constDef]; STATE 6166 [sym_label]; STATE 15991 [sym__statementsTr];
   STATE 15103 [sym_statementsTr]; STATE 8019 [sym__expr; sym_exprConditional];
   STATE 7478 [sym__ref; sym_lambda; sym_inherited; sym_exprDot; sym_exprDeref; sym_exprAs;
   sym_exprTpl; sym_exprSubscript; sym_exprCall]; STATE 8019 [sym_exprBinary; sym_exprUnary];
   STATE 7478 [sym_exprParens; sym_exprBrackets; sym__literal; sym_literalString];
   STATE 6664 [sym__literalString; sym_literalChar]; STATE 7478 [sym_literalNumber];
   STATE 7742 [sym__literalInt; sym__literalFloat]; STATE 1380 [sym__ppIf];
   STATE 6327 [sym__ppStatementBlock]; STATE 11840 [aux_sym_labeledStatement_repeat1];
   STATE 863 [aux_sym__statementsTr_repeat1]; STATE 6664 [aux_sym_literalString_repeat1];
   ACTIONS 397 [anon_sym_SEMI]; ACTIONS 399 [anon_sym_LBRACK]; ACTIONS 401 [anon_sym_LPAREN];
   ACTIONS 403 [aux_sym__literalString_token1]; ACTIONS 405 [anon_sym_POUND];
   ACTIONS 407 [aux_sym__literalInt_token1]; ACTIONS 409 [aux_sym__literalInt_token2;
   aux_sym__literalInt_token3]; ACTIONS 407 [aux_sym__literalFloat_token1];
   ACTIONS 411 [aux_sym_ppUsesBlock_token1]; ACTIONS 413 [sym_kAdd; sym_kSub];
   ACTIONS 415 [sym_kAt]; ACTIONS 417 [sym_kTrue; sym_kFalse]; ACTIONS 419 [sym_labelNumber];
   ACTIONS 3 [sym__space]; ACTIONS 5 [sym_ppDirective]; ACTIONS 3 [sym_comment];
   ACTIONS 417 [sym_ppFragmentExpr]; ACTIONS 397 [sym_ppFragmentStmt];
   ACTIONS 403 [sym__literalStringMultiline]; ACTIONS 421 [sym_identifier];
   ACTIONS 423 [sym_kSpecialize]; ACTIONS 427 [sym_kAsm]; ACTIONS 429 [sym_kBegin];
   ACTIONS 431 [sym_kCase]; ACTIONS 433 [sym_kConst]; ACTIONS 2196 [sym_kEnd];
   ACTIONS 437 [sym_kFor]; ACTIONS 439 [sym_kFunction]; ACTIONS 441 [sym_kGoto];
   ACTIONS 443 [sym_kIf]; ACTIONS 445 [sym_kInherited]; ACTIONS 417 [sym_kNil];
   ACTIONS 415 [sym_kNot]; ACTIONS 439 [sym_kProcedure]; ACTIONS 447 [sym_kRaise];
   ACTIONS 449 [sym_kRepeat]; ACTIONS 451 [sym_kString]; ACTIONS 453 [sym_kTry];
   ACTIONS 455 [sym_kVar]; ACTIONS 457 [sym_kWhile]; ACTIONS 459 [sym_kWith]].

(** State 322. *)
Definition ts_parse_table_322 : parse_row :=
  [STATE 6213 [sym_if]; STATE 6327 [sym_ifElse; sym_while; sym_repeat; sym_for; sym_foreach;
   sym_try; sym_case; sym_block; sym_asm; sym_with; sym_raise; sym_statement; sym_goto;
   sym__statement]; STATE 15991 [sym_ifTr; sym_ifElseTr; sym_whileTr; sym_repeatTr; sym_forTr;
   sym_foreachTr; sym_tryTr; sym_caseTr]; STATE 14251 [sym_blockTr]; STATE 15991 [sym_asmTr;
   sym_withTr; sym_raiseTr; sym_statementTr; sym_gotoTr; sym__statementTr];
   STATE 13915 [sym_assignment]; STATE 11785 [sym_varAssignDef]; STATE 13915 [sym_varDef;
   sym_constDef]; STATE 6166 [sym_label]; STATE 15991 [sym__statementsTr];
   STATE 15166 [sym_statementsTr]; STATE 8019 [sym__expr; sym_exprConditional];
   STATE 7478 [sym__ref; sym_lambda; sym_inherited; sym_exprDot; sym_exprDeref; sym_exprAs;
   sym_exprTpl; sym_exprSubscript; sym_exprCall]; STATE 8019 [sym_exprBinary; sym_exprUnary];
   STATE 7478 [sym_exprParens; sym_exprBrackets; sym__literal; sym_literalString];
   STATE 6664 [sym__literalString; sym_literalChar]; STATE 7478 [sym_literalNumber];
   STATE 7742 [sym__literalInt; sym__literalFloat]; STATE 1380 [sym__ppIf];
   STATE 6327 [sym__ppStatementBlock]; STATE 11840 [aux_sym_labeledStatement_repeat1];
   STATE 863 [aux_sym__statementsTr_repeat1]; STATE 6664 [aux_sym_literalString_repeat1];
   ACTIONS 397 [anon_sym_SEMI]; ACTIONS 399 [anon_sym_LBRACK]; ACTIONS 401 [anon_sym_LPAREN];
   ACTIONS 403 [aux_sym__literalString_token1]; ACTIONS 405 [anon_sym_POUND];
   ACTIONS 407 [aux_sym__literalInt_token1]; ACTIONS 409 [aux_sym__literalInt_token2;
   aux_sym__literalInt_token3]; ACTIONS 407 [aux_sym__literalFloat_token1];
   ACTIONS 411 [aux_sym_ppUsesBlock_token1]; ACTIONS 413 [sym_kAdd; sym_kSub];
   ACTIONS 415 [sym_kAt]; ACTIONS 417 [sym_kTrue; sym_kFalse]; ACTIONS 419 [sym_labelNumber];
   ACTIONS 3 [sym__space]; ACTIONS 5 [sym_ppDirective]; ACTIONS 3 [sym_comment];
   ACTIONS 417 [sym_ppFragmentExpr]; ACTIONS 397 [sym_ppFragmentStmt];
   ACTIONS 403 [sym__literalStringMultiline]; ACTIONS 421 [sym_identifier];
   ACTIONS 423 [sym_kSpecialize]; ACTIONS 427 [sym_kAsm]; ACTIONS 429 [sym_kBegin];
   ACTIONS 431 [sym_kCase]; ACTIONS 433 [sym_kConst]; ACTIONS 2198 [sym_kEnd];
   ACTIONS 437 [sym_kFor]; ACTIONS 439 [sym_kFunction]; ACTIONS 441 [sym_kGoto];
   ACTIONS 443 [sym_kIf]; ACTIONS 445 [sym_kInherited]; ACTIONS 417 [sym_kNil];
   ACTIONS 415 [sym_kNot]; ACTIONS 439 [sym_kProcedure]; ACTIONS 447 [sym_kRaise];
   ACTIONS 449 [sym_kRepeat]; ACTIONS 451 [sym_kString]; ACTIONS 453 [sym_kTry];
   ACTIONS 455 [sym_kVar]; ACTIONS 457 [sym_kWhile]; ACTIONS 459 [sym_kWith]].

(** State 323. *)
Definition ts_parse_table_323 : parse_row :=
  [STATE 6213 [sym_if]; STATE 6327 [sym_ifElse; sym_while; sym_repeat; sym_for; sym_foreach;
   sym_try; sym_case; sym_block; sym_asm; sym_with; sym_raise; sym_statement; sym_goto;
   sym__statement]; STATE 15184 [sym_ifTr; sym_ifElseTr; sym_whileTr; sym_repeatTr; sym_forTr;
   sym_foreachTr; sym_tryTr; sym_caseTr]; STATE 14251 [sym_blockTr]; STATE 15184 [sym_asmTr;
   sym_withTr; sym_raiseTr; sym_statementTr; sym_gotoTr; sym__statementTr];
   STATE 13915 [sym_assignment]; STATE 11785 [sym_varAssignDef]; STATE 13915 [sym_varDef;
   sym_constDef]; STATE 6166 [sym_label]; STATE 15184 [sym__statementsTr]; STATE 8019 [sym__expr;
   sym_exprConditional]; STATE 7478 [sym__ref; sym_lambda; sym_inherited; sym_exprDot;
   sym_exprDeref; sym_exprAs; sym_exprTpl; sym_exprSubscript; sym_exprCall];
   STATE 8019 [sym_exprBinary; sym_exprUnary]; STATE 7478 [sym_exprParens; sym_exprBrackets;
   sym__literal; sym_literalString]; STATE 6664 [sym__literalString; sym_literalChar];
   STATE 7478 [sym_literalNumber]; STATE 7742 [sym__literalInt; sym__literalFloat];
   STATE 1380 [sym__ppIf]; STATE 6327 [sym__ppStatementBlock];
   STATE 11840 [aux_sym_labeledStatement_repeat1]; STATE 863 [aux_sym__statementsTr_repeat1];
   STATE 6664 [aux_sym_literalString_repeat1]; ACTIONS 397 [anon_sym_SEMI];
   ACTIONS 2200 [anon_sym_COLON]; ACTIONS 399 [anon_sym_LBRACK]; ACTIONS 401 [anon_sym_LPAREN];
   ACTIONS 403 [aux_sym__literalString_token1]; ACTIONS 405 [anon_sym_POUND];
   ACTIONS 407 [aux_sym__literalInt_token1]; ACTIONS 409 [aux_sym__literalInt_token2;
   aux_sym__literalInt_token3]; ACTIONS 407 [aux_sym__literalFloat_token1];
   ACTIONS 411 [aux_sym_ppUsesBlock_token1]; ACTIONS 413 [sym_kAdd; sym_kSub];
   ACTIONS 415 [sym_kAt]; ACTIONS 417 [sym_kTrue; sym_kFalse]; ACTIONS 419 [sym_labelNumber];
   ACTIONS 3 [sym__space]; ACTIONS 5 [sym_ppDirective]; ACTIONS 3 [sym_comment];
   ACTIONS 417 [sym_ppFragmentExpr]; ACTIONS 397 [sym_ppFragmentStmt];
   ACTIONS 403 [sym__literalStringMultiline]; ACTIONS 421 [sym_identifier];
   ACTIONS 423 [sym_kSpecialize]; ACTIONS 427 [sym_kAsm]; ACTIONS 429 [sym_kBegin];
   ACTIONS 431 [sym_kCase]; ACTIONS 433 [sym_kConst]; ACTIONS 2202 [sym_kEnd];
   ACTIONS 437 [sym_kFor]; ACTIONS 439 [sym_kFunction]; ACTIONS 441 [sym_kGoto];
   ACTIONS 443 [sym_kIf]; ACTIONS 445 [sym_kInherited]; ACTIONS 417 [sym_kNil];
   ACTIONS 415 [sym_kNot]; ACTIONS 439 [sym_kProcedure]; ACTIONS 447 [sym_kRaise];
   ACTIONS 449 [sym_kRepeat]; ACTIONS 451 [sym_kString]; ACTIONS 453 [sym_kTry];
   ACTIONS 455 [sym_kVar]; ACTIONS 457 [sym_kWhile]; ACTIONS 459 [sym_kWith]].

(** State 324. *)
Definition ts_parse_table_324 : parse_row :=
  [STATE 2899 [sym__ppIf]; STATE 996 [sym__procAttributeNoExt];
   STATE 1005 [sym__procAttributesPp]; STATE 15262 [sym_procAttribute];
   STATE 181 [aux_sym__declProc_repeat1]; ACTIONS 2204 [anon_sym_SEMI; anon_sym_COMMA];
   ACTIONS 2206 [anon_sym_LBRACK]; ACTIONS 2209 [anon_sym_LPAREN];
   ACTIONS 2204 [aux_sym__literalString_token1; anon_sym_POUND];
   ACTIONS 2209 [aux_sym__literalInt_token1]; ACTIONS 2204 [aux_sym__literalInt_token2;
   aux_sym__literalInt_token3]; ACTIONS 2209 [aux_sym__literalFloat_token1];
   ACTIONS 2211 [aux_sym_ppUsesBlock_token1]; ACTIONS 2204 [aux_sym_ppUsesBlock_token2;
   aux_sym_ppUsesBlock_token3]; ACTIONS 2209 [sym_kAdd; sym_kSub]; ACTIONS 2204 [sym_kAt;
   sym_kTrue; sym_kFalse]; ACTIONS 3 [sym__space]; ACTIONS 5 [sym_ppDirective];
   ACTIONS 3 [sym_comment]; ACTIONS 2204 [sym_ppFragmentExpr; sym__literalStringMultiline;
   sym_identifier]; ACTIONS 2214 [sym_kDefault; sym_kNodefault]; ACTIONS 2217 [sym_kDispId];
   ACTIONS 2204 [sym_kGeneric; sym_kSpecialize; sym_kOperator]; ACTIONS 2220 [sym_kPublic];
   ACTIONS 2204 [sym_kForward]; ACTIONS 2214 [sym_kStatic; sym_kVirtual; sym_kAbstract;
   sym_kDynamic; sym_kOverride; sym_kOverload; sym_kReintroduce; sym_kStdcall; sym_kCdecl;
   sym_kCppdecl; sym_kPascal; sym_kRegister; sym_kMwpascal]; ACTIONS 2204 [sym_kExternal];
   ACTIONS 2223 [sym_kMessage]; ACTIONS 2226 [sym_kDeprecated]; ACTIONS 2214 [sym_kExperimental;
   sym_kPlatform; sym_kUnimplemented; sym_kCvar]; ACTIONS 2229 [sym_kExport];
   ACTIONS 2214 [sym_kFar; sym_kNear; sym_kSafecall; sym_kAssembler; sym_kNostackframe;
   sym_kInterrupt; sym_kNoreturn; sym_kIocheck; sym_kLocal; sym_kHardfloat; sym_kSoftfloat;
   sym_kMs_abi_default; sym_kMs_abi_cdecl; sym_kSaveregisters; sym_kSysv_abi_default;
   sym_kSysv_abi_cdecl; sym_kVectorcall; sym_kVarargs; sym_kWinapi]; ACTIONS 2232 [sym_kAlias];
   ACTIONS 2204 [sym_kAsm; sym_kBegin; sym_kCase; sym_kClass; sym_kConst; sym_kConstructor;
   sym_kDestructor; sym_kExports; sym_kFor; sym_kFunction; sym_kGoto; sym_kIf; sym_kInherited];
   ACTIONS 1016 [sym_kInline]; ACTIONS 2204 [sym_kLabel; sym_kNil; sym_kNot; sym_kProcedure;
   sym_kProperty; sym_kRaise; sym_kRepeat; sym_kResourcestring; sym_kString; sym_kThreadvar;
   sym_kTry; sym_kType; sym_kUses; sym_kVar; sym_kWhile; sym_kWith]].

(** State 325. *)
Definition ts_parse_table_325 : parse_row :=
  [STATE 6213 [sym_if]; STATE 6327 [sym_ifElse; sym_while; sym_repeat; sym_for; sym_foreach;
   sym_try; sym_case; sym_block; sym_asm; sym_with; sym_raise; sym_statement; sym_goto;
   sym__statement]; STATE 15199 [sym_ifTr; sym_ifElseTr; sym_whileTr; sym_repeatTr; sym_forTr;
   sym_foreachTr; sym_tryTr; sym_caseTr]; STATE 14251 [sym_blockTr]; STATE 15199 [sym_asmTr;
   sym_withTr; sym_raiseTr; sym_statementTr; sym_gotoTr; sym__statementTr];
   STATE 13915 [sym_assignment]; STATE 11785 [sym_varAssignDef]; STATE 13915 [sym_varDef;
   sym_constDef]; STATE 6166 [sym_label]; STATE 15199 [sym__statementsTr]; STATE 8019 [sym__expr;
   sym_exprConditional]; STATE 7478 [sym__ref; sym_lambda; sym_inherited; sym_exprDot;
   sym_exprDeref; sym_exprAs; sym_exprTpl; sym_exprSubscript; sym_exprCall];
   STATE 8019 [sym_exprBinary; sym_exprUnary]; STATE 7478 [sym_exprParens; sym_exprBrackets;
   sym__literal; sym_literalString]; STATE 6664 [sym__literalString; sym_literalChar];
   STATE 7478 [sym_literalNumber]; STATE 7742 [sym__literalInt; sym__literalFloat];
   STATE 1380 [sym__ppIf]; STATE 6327 [sym__ppStatementBlock];
   STATE 11840 [aux_sym_labeledStatement_repeat1]; STATE 863 [aux_sym__statementsTr_repeat1];
   STATE 6664 [aux_sym_literalString_repeat1]; ACTIONS 397 [anon_sym_SEMI];
   ACTIONS 2235 [anon_sym_COLON]; ACTIONS 399 [anon_sym_LBRACK]; ACTIONS 401 [anon_sym_LPAREN];
   ACTIONS 403 [aux_sym__literalString_token1]; ACTIONS 405 [anon_sym_POUND];
   ACTIONS 407 [aux_sym__literalInt_token1]; ACTIONS 409 [aux_sym__literalInt_token2;
   aux_sym__literalInt_token3]; ACTIONS 407 [aux_sym__literalFloat_token1];
   ACTIONS 411 [aux_sym_ppUsesBlock_token1]; ACTIONS 413 [sym_kAdd; sym_kSub];
   ACTIONS 415 [sym_kAt]; ACTIONS 417 [sym_kTrue; sym_kFalse]; ACTIONS 419 [sym_labelNumber];
   ACTIONS 3 [sym__space]; ACTIONS 5 [sym_ppDirective]; ACTIONS 3 [sym_comment];
   ACTIONS 417 [sym_ppFragmentExpr]; ACTIONS 397 [sym_ppFragmentStmt];
   ACTIONS 403 [sym__literalStringMultiline]; ACTIONS 421 [sym_identifier];
   ACTIONS 423 [sym_kSpecialize]; ACTIONS 427 [sym_kAsm]; ACTIONS 429 [sym_kBegin];
   ACTIONS 431 [sym_kCase]; ACTIONS 433 [sym_kConst]; ACTIONS 2237 [sym_kEnd];
   ACTIONS 437 [sym_kFor]; ACTIONS 439 [sym_kFunction]; ACTIONS 441 [sym_kGoto];
   ACTIONS 443 [sym_kIf]; ACTIONS 445 [sym_kInherited]; ACTIONS 417 [sym_kNil];
   ACTIONS 415 [sym_kNot]; ACTIONS 439 [sym_kProcedure]; ACTIONS 447 [sym_kRaise];
   ACTIONS 449 [sym_kRepeat]; ACTIONS 451 [sym_kString]; ACTIONS 453 [sym_kTry];
   ACTIONS 455 [sym_kVar]; ACTIONS 457 [sym_kWhile]; ACTIONS 459 [sym_kWith]].

(** State 326. *)
Definition ts_parse_table_326 : parse_row :=
  [STATE 6213 [sym_if]; STATE 6327 [sym_ifElse; sym_while; sym_repeat; sym_for; sym_foreach;
   sym_try; sym_case; sym_block; sym_asm; sym_with; sym_raise; sym_statement; sym_goto;
   sym__statement]; STATE 15991 [sym_ifTr; sym_ifElseTr; sym_whileTr; sym_repeatTr; sym_forTr;
   sym_foreachTr; sym_tryTr; sym_caseTr]; STATE 14251 [sym_blockTr]; STATE 15991 [sym_asmTr;
   sym_withTr; sym_raiseTr; sym_statementTr; sym_gotoTr; sym__statementTr];
   STATE 13915 [sym_assignment]; STATE 11785 [sym_varAssignDef]; STATE 13915 [sym_varDef;
   sym_constDef]; STATE 6166 [sym_label]; STATE 15991 [sym__statementsTr];
   STATE 15308 [sym_statementsTr]; STATE 8019 [sym__expr; sym_exprConditional];
   STATE 7478 [sym__ref; sym_lambda; sym_inherited; sym_exprDot; sym_exprDeref; sym_exprAs;
   sym_exprTpl; sym_exprSubscript; sym_exprCall]; STATE 8019 [sym_exprBinary; sym_exprUnary];
   STATE 7478 [sym_exprParens; sym_exprBrackets; sym__literal; sym_literalString];
   STATE 6664 [sym__literalString; sym_literalChar]; STATE 7478 [sym_literalNumber];
   STATE 7742 [sym__literalInt; sym__literalFloat]; STATE 1380 [sym__ppIf];
   STATE 6327 [sym__ppStatementBlock]; STATE 11840 [aux_sym_labeledStatement_repeat1];
   STATE 863 [aux_sym__statementsTr_repeat1]; STATE 6664 [aux_sym_literalString_repeat1];
   ACTIONS 397 [anon_sym_SEMI]; ACTIONS 399 [anon_sym_LBRACK]; ACTIONS 401 [anon_sym_LPAREN];
   ACTIONS 403 [aux_sym__literalString_token1]; ACTIONS 405 [anon_sym_POUND];
   ACTIONS 407 [aux_sym__literalInt_token1]; ACTIONS 409 [aux_sym__literalInt_token2;
   aux_sym__literalInt_token3]; ACTIONS 407 [aux_sym__literalFloat_token1];
   ACTIONS 411 [aux_sym_ppUsesBlock_token1]; ACTIONS 413 [sym_kAdd; sym_kSub];
   ACTIONS 415 [sym_kAt]; ACTIONS 417 [sym_kTrue; sym_kFalse]; ACTIONS 419 [sym_labelNumber];
   ACTIONS 3 [sym__space]; ACTIONS 5 [sym_ppDirective]; ACTIONS 3 [sym_comment];
   ACTIONS 417 [sym_ppFragmentExpr]; ACTIONS 397 [sym_ppFragmentStmt];
   ACTIONS 403 [sym__literalStringMultiline]; ACTIONS 421 [sym_identifier];
   ACTIONS 423 [sym_kSpecialize]; ACTIONS 427 [sym_kAsm]; ACTIONS 429 [sym_kBegin];
   ACTIONS 431 [sym_kCase]; ACTIONS 433 [sym_kConst]; ACTIONS 2239 [sym_kEnd];
   ACTIONS 437 [sym_kFor]; ACTIONS 439 [sym_kFunction]; ACTIONS 441 [sym_kGoto];
   ACTIONS 443 [sym_kIf]; ACTIONS 445 [sym_kInherited]; ACTIONS 417 [sym_kNil];
   ACTIONS 415 [sym_kNot]; ACTIONS 439 [sym_kProcedure]; ACTIONS 447 [sym_kRaise];
   ACTIONS 449 [sym_kRepeat]; ACTIONS 451 [sym_kString]; ACTIONS 453 [sym_kTry];
   ACTIONS 455 [sym_kVar]; ACTIONS 457 [sym_kWhile]; ACTIONS 459 [sym_kWith]].

(** State 327. *)
Definition ts_parse_table_327 : parse_row :=
  [STATE 6213 [sym_if]; STATE 6327 [sym_ifElse; sym_while; sym_repeat; sym_for; sym_foreach;
   sym_try; sym_case; sym_block; sym_asm; sym_with; sym_raise; sym_statement; sym_goto;
   sym__statement]; STATE 15991 [sym_ifTr; sym_ifElseTr; sym_whileTr; sym_repeatTr; sym_forTr;
   sym_foreachTr; sym_tryTr; sym_caseTr]; STATE 14251 [sym_blockTr]; STATE 15991 [sym_asmTr;
   sym_withTr; sym_raiseTr; sym_statementTr; sym_gotoTr; sym__statementTr];
   STATE 13915 [sym_assignment]; STATE 11785 [sym_varAssignDef]; STATE 13915 [sym_varDef;
   sym_constDef]; STATE 6166 [sym_label]; STATE 15991 [sym__statementsTr];
   STATE 15374 [sym_statementsTr]; STATE 8019 [sym__expr; sym_exprConditional];
   STATE 7478 [sym__ref; sym_lambda; sym_inherited; sym_exprDot; sym_exprDeref; sym_exprAs;
   sym_exprTpl; sym_exprSubscript; sym_exprCall]; STATE 8019 [sym_exprBinary; sym_exprUnary];
   STATE 7478 [sym_exprParens; sym_exprBrackets; sym__literal; sym_literalString];
   STATE 6664 [sym__literalString; sym_literalChar]; STATE 7478 [sym_literalNumber];
   STATE 7742 [sym__literalInt; sym__literalFloat]; STATE 1380 [sym__ppIf];
   STATE 6327 [sym__ppStatementBlock]; STATE 11840 [aux_sym_labeledStatement_repeat1];
   STATE 863 [aux_sym__statementsTr_repeat1]; STATE 6664 [aux_sym_literalString_repeat1];
   ACTIONS 397 [anon_sym_SEMI]; ACTIONS 399 [anon_sym_LBRACK]; ACTIONS 401 [anon_sym_LPAREN];
   ACTIONS 403 [aux_sym__literalString_token1]; ACTIONS 405 [anon_sym_POUND];
   ACTIONS 407 [aux_sym__literalInt_token1]; ACTIONS 409 [aux_sym__literalInt_token2;
   aux_sym__literalInt_token3]; ACTIONS 407 [aux_sym__literalFloat_token1];
   ACTIONS 411 [aux_sym_ppUsesBlock_token1]; ACTIONS 413 [sym_kAdd; sym_kSub];
   ACTIONS 415 [sym_kAt]; ACTIONS 417 [sym_kTrue; sym_kFalse]; ACTIONS 419 [sym_labelNumber];
   ACTIONS 3 [sym__space]; ACTIONS 5 [sym_ppDirective]; ACTIONS 3 [sym_comment];
   ACTIONS 417 [sym_ppFragmentExpr]; ACTIONS 397 [sym_ppFragmentStmt];
   ACTIONS 403 [sym__literalStringMultiline]; ACTIONS 421 [sym_identifier];
   ACTIONS 423 [sym_kSpecialize]; ACTIONS 427 [sym_kAsm]; ACTIONS 429 [sym_kBegin];
   ACTIONS 431 [sym_kCase]; ACTIONS 433 [sym_kConst]; ACTIONS 2241 [sym_kEnd];
   ACTIONS 437 [sym_kFor]; ACTIONS 439 [sym_kFunction]; ACTIONS 441 [sym_kGoto];
   ACTIONS 443 [sym_kIf]; ACTIONS 445 [sym_kInherited]; ACTIONS 417 [sym_kNil];
   ACTIONS 415 [sym_kNot]; ACTIONS 439 [sym_kProcedure]; ACTIONS 447 [sym_kRaise];
   ACTIONS 449 [sym_kRepeat]; ACTIONS 451 [sym_kString]; ACTIONS 453 [sym_kTry];
   ACTIONS 455 [sym_kVar]; ACTIONS 457 [sym_kWhile]; ACTIONS 459 [sym_kWith]].

(** State 328. *)
Definition ts_parse_table_328 : parse_row :=
  [STATE 6213 [sym_if]; STATE 6327 [sym_ifElse; sym_while; sym_repeat; sym_for; sym_foreach;
   sym_try; sym_case; sym_block; sym_asm; sym_with; sym_raise; sym_statement; sym_goto;
   sym__statement]; STATE 15402 [sym_ifTr; sym_ifElseTr; sym_whileTr; sym_repeatTr; sym_forTr;
   sym_foreachTr; sym_tryTr; sym_caseTr]; STATE 14251 [sym_blockTr]; STATE 15402 [sym_asmTr;
   sym_withTr; sym_raiseTr; sym_statementTr; sym_gotoTr; sym__statementTr];
   STATE 13915 [sym_assignment]; STATE 11785 [sym_varAssignDef]; STATE 13915 [sym_varDef;
   sym_constDef]; STATE 6166 [sym_label]; STATE 15402 [sym__statementsTr]; STATE 8019 [sym__expr;
   sym_exprConditional]; STATE 7478 [sym__ref; sym_lambda; sym_inherited; sym_exprDot;
   sym_exprDeref; sym_exprAs; sym_exprTpl; sym_exprSubscript; sym_exprCall];
   STATE 8019 [sym_exprBinary; sym_exprUnary]; STATE 7478 [sym_exprParens; sym_exprBrackets;
   sym__literal; sym_literalString]; STATE 6664 [sym__literalString; sym_literalChar];
   STATE 7478 [sym_literalNumber]; STATE 7742 [sym__literalInt; sym__literalFloat];
   STATE 1380 [sym__ppIf]; STATE 6327 [sym__ppStatementBlock];
   STATE 11840 [aux_sym_labeledStatement_repeat1]; STATE 863 [aux_sym__statementsTr_repeat1];
   STATE 6664 [aux_sym_literalString_repeat1]; ACTIONS 397 [anon_sym_SEMI];
   ACTIONS 2243 [anon_sym_COLON]; ACTIONS 399 [anon_sym_LBRACK]; ACTIONS 401 [anon_sym_LPAREN];
   ACTIONS 403 [aux_sym__literalString_token1]; ACTIONS 405 [anon_sym_POUND];
   ACTIONS 407 [aux_sym__literalInt_token1]; ACTIONS 409 [aux_sym__literalInt_token2;
   aux_sym__literalInt_token3]; ACTIONS 407 [aux_sym__literalFloat_token1];
   ACTIONS 411 [aux_sym_ppUsesBlock_token1]; ACTIONS 413 [sym_kAdd; sym_kSub];
   ACTIONS 415 [sym_kAt]; ACTIONS 417 [sym_kTrue; sym_kFalse]; ACTIONS 419 [sym_labelNumber];
   ACTIONS 3 [sym__space]; ACTIONS 5 [sym_ppDirective]; ACTIONS 3 [sym_comment];
   ACTIONS 417 [sym_ppFragmentExpr]; ACTIONS 397 [sym_ppFragmentStmt];
   ACTIONS 403 [sym__literalStringMultiline]; ACTIONS 421 [sym_identifier];
   ACTIONS 423 [sym_kSpecialize]; ACTIONS 427 [sym_kAsm]; ACTIONS 429 [sym_kBegin];
   ACTIONS 431 [sym_kCase]; ACTIONS 433 [sym_kConst]; ACTIONS 2245 [sym_kEnd];
   ACTIONS 437 [sym_kFor]; ACTIONS 439 [sym_kFunction]; ACTIONS 441 [sym_kGoto];
   ACTIONS 443 [sym_kIf]; ACTIONS 445 [sym_kInherited]; ACTIONS 417 [sym_kNil];
   ACTIONS 415 [sym_kNot]; ACTIONS 439 [sym_kProcedure]; ACTIONS 447 [sym_kRaise];
   ACTIONS 449 [sym_kRepeat]; ACTIONS 451 [sym_kString]; ACTIONS 453 [sym_kTry];
   ACTIONS 455 [sym_kVar]; ACTIONS 457 [sym_kWhile]; ACTIONS 459 [sym_kWith]].

(** State 329. *)
Definition ts_parse_table_329 : parse_row :=
  [STATE 6213 [sym_if]; STATE 6327 [sym_ifElse; sym_while; sym_repeat; sym_for; sym_foreach;
   sym_try; sym_case; sym_block; sym_asm; sym_with; sym_raise; sym_statement; sym_goto;
   sym__statement]; STATE 15414 [sym_ifTr; sym_ifElseTr; sym_whileTr; sym_repeatTr; sym_forTr;
   sym_foreachTr; sym_tryTr; sym_caseTr]; STATE 14251 [sym_blockTr]; STATE 15414 [sym_asmTr;
   sym_withTr; sym_raiseTr; sym_statementTr; sym_gotoTr; sym__statementTr];
   STATE 13915 [sym_assignment]; STATE 11785 [sym_varAssignDef]; STATE 13915 [sym_varDef;
   sym_constDef]; STATE 6166 [sym_label]; STATE 15414 [sym__statementsTr]; STATE 8019 [sym__expr;
   sym_exprConditional]; STATE 7478 [sym__ref; sym_lambda; sym_inherited; sym_exprDot;
   sym_exprDeref; sym_exprAs; sym_exprTpl; sym_exprSubscript; sym_exprCall];
   STATE 8019 [sym_exprBinary; sym_exprUnary]; STATE 7478 [sym_exprParens; sym_exprBrackets;
   sym__literal; sym_literalString]; STATE 6664 [sym__literalString; sym_literalChar];
   STATE 7478 [sym_literalNumber]; STATE 7742 [sym__literalInt; sym__literalFloat];
   STATE 1380 [sym__ppIf]; STATE 6327 [sym__ppStatementBlock];
   STATE 11840 [aux_sym_labeledStatement_repeat1]; STATE 863 [aux_sym__statementsTr_repeat1];
   STATE 6664 [aux_sym_literalString_repeat1]; ACTIONS 397 [anon_sym_SEMI];
   ACTIONS 2247 [anon_sym_COLON]; ACTIONS 399 [anon_sym_LBRACK]; ACTIONS 401 [anon_sym_LPAREN];
   ACTIONS 403 [aux_sym__literalString_token1]; ACTIONS 405 [anon_sym_POUND];
   ACTIONS 407 [aux_sym__literalInt_token1]; ACTIONS 409 [aux_sym__literalInt_token2;
   aux_sym__literalInt_token3]; ACTIONS 407 [aux_sym__literalFloat_token1];
   ACTIONS 411 [aux_sym_ppUsesBlock_token1]; ACTIONS 413 [sym_kAdd; sym_kSub];
   ACTIONS 415 [sym_kAt]; ACTIONS 417 [sym_kTrue; sym_kFalse]; ACTIONS 419 [sym_labelNumber];
   ACTIONS 3 [sym__space]; ACTIONS 5 [sym_ppDirective]; ACTIONS 3 [sym_comment];
   ACTIONS 417 [sym_ppFragmentExpr]; ACTIONS 397 [sym_ppFragmentStmt];
   ACTIONS 403 [sym__literalStringMultiline]; ACTIONS 421 [sym_identifier];
   ACTIONS 423 [sym_kSpecialize]; ACTIONS 427 [sym_kAsm]; ACTIONS 429 [sym_kBegin];
   ACTIONS 431 [sym_kCase]; ACTIONS 433 [sym_kConst]; ACTIONS 2249 [sym_kEnd];
   ACTIONS 437 [sym_kFor]; ACTIONS 439 [sym_kFunction]; ACTIONS 441 [sym_kGoto];
   ACTIONS 443 [sym_kIf]; ACTIONS 445 [sym_kInherited]; ACTIONS 417 [sym_kNil];
   ACTIONS 415 [sym_kNot]; ACTIONS 439 [sym_kProcedure]; ACTIONS 447 [sym_kRaise];
   ACTIONS 449 [sym_kRepeat]; ACTIONS 451 [sym_kString]; ACTIONS 453 [sym_kTry];
   ACTIONS 455 [sym_kVar]; ACTIONS 457 [sym_kWhile]; ACTIONS 459 [sym_kWith]].

(** State 330. *)
Definition ts_parse_table_330 : parse_row :=
  [STATE 6213 [sym_if]; STATE 6327 [sym_ifElse; sym_while; sym_repeat; sym_for; sym_foreach;
   sym_try; sym_case; sym_block; sym_asm; sym_with; sym_raise; sym_statement; sym_goto;
   sym__statement]; STATE 15419 [sym_ifTr; sym_ifElseTr; sym_whileTr; sym_repeatTr; sym_forTr;
   sym_foreachTr; sym_tryTr; sym_caseTr]; STATE 14251 [sym_blockTr]; STATE 15419 [sym_asmTr;
   sym_withTr; sym_raiseTr; sym_statementTr; sym_gotoTr; sym__statementTr];
   STATE 13915 [sym_assignment]; STATE 11785 [sym_varAssignDef]; STATE 13915 [sym_varDef;
   sym_constDef]; STATE 6166 [sym_label]; STATE 15419 [sym__statementsTr]; STATE 8019 [sym__expr;
   sym_exprConditional]; STATE 7478 [sym__ref; sym_lambda; sym_inherited; sym_exprDot;
   sym_exprDeref; sym_exprAs; sym_exprTpl; sym_exprSubscript; sym_exprCall];
   STATE 8019 [sym_exprBinary; sym_exprUnary]; STATE 7478 [sym_exprParens; sym_exprBrackets;
   sym__literal; sym_literalString]; STATE 6664 [sym__literalString; sym_literalChar];
   STATE 7478 [sym_literalNumber]; STATE 7742 [sym__literalInt; sym__literalFloat];
   STATE 1380 [sym__ppIf]; STATE 6327 [sym__ppStatementBlock];
   STATE 11840 [aux_sym_labeledStatement_repeat1]; STATE 863 [aux_sym__statementsTr_repeat1];
   STATE 6664 [aux_sym_literalString_repeat1]; ACTIONS 397 [anon_sym_SEMI];
   ACTIONS 2251 [anon_sym_COLON]; ACTIONS 399 [anon_sym_LBRACK]; ACTIONS 401 [anon_sym_LPAREN];
   ACTIONS 403 [aux_sym__literalString_token1]; ACTIONS 405 [anon_sym_POUND];
   ACTIONS 407 [aux_sym__literalInt_token1]; ACTIONS 409 [aux_sym__literalInt_token2;
   aux_sym__literalInt_token3]; ACTIONS 407 [aux_sym__literalFloat_token1];
   ACTIONS 411 [aux_sym_ppUsesBlock_token1]; ACTIONS 413 [sym_kAdd; sym_kSub];
   ACTIONS 415 [sym_kAt]; ACTIONS 417 [sym_kTrue; sym_kFalse]; ACTIONS 419 [sym_labelNumber];
   ACTIONS 3 [sym__space]; ACTIONS 5 [sym_ppDirective]; ACTIONS 3 [sym_comment];
   ACTIONS 417 [sym_ppFragmentExpr]; ACTIONS 397 [sym_ppFragmentStmt];
   ACTIONS 403 [sym__literalStringMultiline]; ACTIONS 421 [sym_identifier];
   ACTIONS 423 [sym_kSpecialize]; ACTIONS 427 [sym_kAsm]; ACTIONS 429 [sym_kBegin];
   ACTIONS 431 [sym_kCase]; ACTIONS 433 [sym_kConst]; ACTIONS 2253 [sym_kEnd];
   ACTIONS 437 [sym_kFor]; ACTIONS 439 [sym_kFunction]; ACTIONS 441 [sym_kGoto];
   ACTIONS 443 [sym_kIf]; ACTIONS 445 [sym_kInherited]; ACTIONS 417 [sym_kNil];
   ACTIONS 415 [sym_kNot]; ACTIONS 439 [sym_kProcedure]; ACTIONS 447 [sym_kRaise];
   ACTIONS 449 [sym_kRepeat]; ACTIONS 451 [sym_kString]; ACTIONS 453 [sym_kTry];
   ACTIONS 455 [sym_kVar]; ACTIONS 457 [sym_kWhile]; ACTIONS 459 [sym_kWith]].

Definition ts_parse_table_part2 : list parse_row :=
  [
   ts_parse_table_148; ts_parse_table_149; ts_parse_table_150; ts_parse_table_151;
   ts_parse_table_152; ts_parse_table_153; ts_parse_table_154; ts_parse_table_155;
   ts_parse_table_156; ts_parse_table_157; ts_parse_table_158; ts_parse_table_159;
   ts_parse_table_160; ts_parse_table_161; ts_parse_table_162; ts_parse_table_163;
   ts_parse_table_164; ts_parse_table_165; ts_parse_table_166; ts_parse_table_167;
   ts_parse_table_168; ts_parse_table_169; ts_parse_table_170; ts_parse_table_171;
   ts_parse_table_172; ts_parse_table_173; ts_parse_table_174; ts_parse_table_175;
   ts_parse_table_176; ts_parse_table_177; ts_parse_table_178; ts_parse_table_179;
   ts_parse_table_180; ts_parse_table_181; ts_parse_table_182; ts_parse_table_183;
   ts_parse_table_184; ts_parse_table_185; ts_parse_table_186; ts_parse_table_187;
   ts_parse_table_188; ts_parse_table_189; ts_parse_table_190; ts_parse_table_191;
   ts_parse_table_192; ts_parse_table_193; ts_parse_table_194; ts_parse_table_195;
   ts_parse_table_196; ts_parse_table_197; ts_parse_table_198; ts_parse_table_199;
   ts_parse_table_200; ts_parse_table_201; ts_parse_table_202; ts_parse_table_203;
   ts_parse_table_204; ts_parse_table_205; ts_parse_table_206; ts_parse_table_207;
   ts_parse_table_208; ts_parse_table_209; ts_parse_table_210; ts_parse_table_211;
   ts_parse_table_212; ts_parse_table_213; ts_parse_table_214; ts_parse_table_215;
   ts_parse_table_216; ts_parse_table_217; ts_parse_table_218; ts_parse_table_219;
   ts_parse_table_220; ts_parse_table_221; ts_parse_table_222; ts_parse_table_223;
   ts_parse_table_224; ts_parse_table_225; ts_parse_table_226; ts_parse_table_227;
   ts_parse_table_228; ts_parse_table_229; ts_parse_table_230; ts_parse_table_231;
   ts_parse_table_232; ts_parse_table_233; ts_parse_table_234; ts_parse_table_235;
   ts_parse_table_236; ts_parse_table_237; ts_parse_table_238; ts_parse_table_239;
   ts_parse_table_240; ts_parse_table_241; ts_parse_table_242; ts_parse_table_243;
   ts_parse_table_244; ts_parse_table_245; ts_parse_table_246; ts_parse_table_247;
   ts_parse_table_248; ts_parse_table_249; ts_parse_table_250; ts_parse_table_251;
   ts_parse_table_252; ts_parse_table_253; ts_parse_table_254; ts_parse_table_255;
   ts_parse_table_256; ts_parse_table_257; ts_parse_table_258; ts_parse_table_259;
   ts_parse_table_260; ts_parse_table_261; ts_parse_table_262; ts_parse_table_263;
   ts_parse_table_264; ts_parse_table_265; ts_parse_table_266; ts_parse_table_267;
   ts_parse_table_268; ts_parse_table_269; ts_parse_table_270; ts_parse_table_271;
   ts_parse_table_272; ts_parse_table_273; ts_parse_table_274; ts_parse_table_275;
   ts_parse_table_276; ts_parse_table_277; ts_parse_table_278; ts_parse_table_279;
   ts_parse_table_280; ts_parse_table_281; ts_parse_table_282; ts_parse_table_283;
   ts_parse_table_284; ts_parse_table_285; ts_parse_table_286; ts_parse_table_287;
   ts_parse_table_288; ts_parse_table_289; ts_parse_table_290; ts_parse_table_291;
   ts_parse_table_292; ts_parse_table_293; ts_parse_table_294; ts_parse_table_295;
   ts_parse_table_296; ts_parse_table_297; ts_parse_table_298; ts_parse_table_299;
   ts_parse_table_300; ts_parse_table_301; ts_parse_table_302; ts_parse_table_303;
   ts_parse_table_304; ts_parse_table_305; ts_parse_table_306; ts_parse_table_307;
   ts_parse_table_308; ts_parse_table_309; ts_parse_table_310; ts_parse_table_311;
   ts_parse_table_312; ts_parse_table_313; ts_parse_table_314; ts_parse_table_315;
   ts_parse_table_316; ts_parse_table_317; ts_parse_table_318; ts_parse_table_319;
   ts_parse_table_320; ts_parse_table_321; ts_parse_table_322; ts_parse_table_323;
   ts_parse_table_324; ts_parse_table_325; ts_parse_table_326; ts_parse_table_327;
   ts_parse_table_328; ts_parse_table_329; ts_parse_table_330
  ].
