(* ===== verification/ParseTable3.v ===== *)
(** * The parse table of [parser.c], states 331 to 513

    One definition for each row of [ts_parse_table], with the initializers of
    the row in the order of the source; consecutive initializers of the same
    value are one group. *)

From S2P Require Import Prelude.
From S2P Require Import Symbols.
From S2P Require Import ParseTypes.

(** State 331. *)
Definition ts_parse_table_331 : parse_row :=
  [STATE 6213 [sym_if]; STATE 6327 [sym_ifElse; sym_while; sym_repeat; sym_for; sym_foreach;
   sym_try; sym_case; sym_block; sym_asm; sym_with; sym_raise; sym_statement; sym_goto;
   sym__statement]; STATE 15991 [sym_ifTr; sym_ifElseTr; sym_whileTr; sym_repeatTr; sym_forTr;
   sym_foreachTr; sym_tryTr; sym_caseTr]; STATE 14251 [sym_blockTr]; STATE 15991 [sym_asmTr;
   sym_withTr; sym_raiseTr; sym_statementTr; sym_gotoTr; sym__statementTr];
   STATE 13915 [sym_assignment]; STATE 11785 [sym_varAssignDef]; STATE 13915 [sym_varDef;
   sym_constDef]; STATE 6166 [sym_label]; STATE 15991 [sym__statementsTr];
   STATE 15502 [sym_statementsTr]; STATE 8019 [sym__expr; sym_exprConditional];
   STATE 7478 [sym__ref; sym_lambda; sym_inherited; sym_exprDot; sym_exprDeref; sym_exprAs;
   sym_exprTpl; sym_exprSubscript; sym_exprCall]; STATE 8019 [sym_exprBinary; sym_exprUnary];
   STATE 7478 [sym_exprParens; sym_exprBrackets; sym__literal; sym_literalString];
   STATE 6664 [sym__literalString; sym_literalChar]; STATE 7478 [sym_literalNumber];
   STATE 7742 [sym__literalInt; sym__literalFloat]; STATE 1380 [sym__ppIf];
   STATE 6327 [sym__ppStatementBlock]; STATE 11840 [aux_sym_labeledStatement_repeat1];
   STATE 863 [aux_sym__statementsTr_repeat1]; STATE 6664 [aux_sym_literalString_repeat1];
   ACTIONS 397 [anon_sym_SEMI]; ACTIONS 399 [anon_sym_LBRACK]; ACTIONS 401 [anon_sym_LPAREN];
   ACTIONS 403 [aux_sym__literalString_token1]; ACTIONS 405 [anon_sym_POUND];
   ACTIONS 407 [aux_sym__literalInt_token1]; ACTIONS 409 [aux_sym__literalInt_token2;
   aux_sym__literalInt_token3]; ACTIONS 407 [aux_sym__literalFloat_token1];
   ACTIONS 411 [aux_sym_ppUsesBlock_token1]; ACTIONS 413 [sym_kAdd; sym_kSub];
   ACTIONS 415 [sym_kAt]; ACTIONS 417 [sym_kTrue; sym_kFalse]; ACTIONS 419 [sym_labelNumber];
   ACTIONS 3 [sym__space]; ACTIONS 5 [sym_ppDirective]; ACTIONS 3 [sym_comment];
   ACTIONS 417 [sym_ppFragmentExpr]; ACTIONS 397 [sym_ppFragmentStmt];
   ACTIONS 403 [sym__literalStringMultiline]; ACTIONS 421 [sym_identifier];
   ACTIONS 423 [sym_kSpecialize]; ACTIONS 427 [sym_kAsm]; ACTIONS 429 [sym_kBegin];
   ACTIONS 431 [sym_kCase]; ACTIONS 433 [sym_kConst]; ACTIONS 2255 [sym_kEnd];
   ACTIONS 437 [sym_kFor]; ACTIONS 439 [sym_kFunction]; ACTIONS 441 [sym_kGoto];
   ACTIONS 443 [sym_kIf]; ACTIONS 445 [sym_kInherited]; ACTIONS 417 [sym_kNil];
   ACTIONS 415 [sym_kNot]; ACTIONS 439 [sym_kProcedure]; ACTIONS 447 [sym_kRaise];
   ACTIONS 449 [sym_kRepeat]; ACTIONS 451 [sym_kString]; ACTIONS 453 [sym_kTry];
   ACTIONS 455 [sym_kVar]; ACTIONS 457 [sym_kWhile]; ACTIONS 459 [sym_kWith]].

(** State 332. *)
Definition ts_parse_table_332 : parse_row :=
  [STATE 6213 [sym_if]; STATE 6327 [sym_ifElse; sym_while; sym_repeat; sym_for; sym_foreach;
   sym_try; sym_case; sym_block; sym_asm; sym_with; sym_raise; sym_statement; sym_goto;
   sym__statement]; STATE 15991 [sym_ifTr; sym_ifElseTr; sym_whileTr; sym_repeatTr; sym_forTr;
   sym_foreachTr; sym_tryTr; sym_caseTr]; STATE 14251 [sym_blockTr]; STATE 15991 [sym_asmTr;
   sym_withTr; sym_raiseTr; sym_statementTr; sym_gotoTr; sym__statementTr];
   STATE 13915 [sym_assignment]; STATE 11785 [sym_varAssignDef]; STATE 13915 [sym_varDef;
   sym_constDef]; STATE 6166 [sym_label]; STATE 15991 [sym__statementsTr];
   STATE 15542 [sym_statementsTr]; STATE 8019 [sym__expr; sym_exprConditional];
   STATE 7478 [sym__ref; sym_lambda; sym_inherited; sym_exprDot; sym_exprDeref; sym_exprAs;
   sym_exprTpl; sym_exprSubscript; sym_exprCall]; STATE 8019 [sym_exprBinary; sym_exprUnary];
   STATE 7478 [sym_exprParens; sym_exprBrackets; sym__literal; sym_literalString];
   STATE 6664 [sym__literalString; sym_literalChar]; STATE 7478 [sym_literalNumber];
   STATE 7742 [sym__literalInt; sym__literalFloat]; STATE 1380 [sym__ppIf];
   STATE 6327 [sym__ppStatementBlock]; STATE 11840 [aux_sym_labeledStatement_repeat1];
   STATE 863 [aux_sym__statementsTr_repeat1]; STATE 6664 [aux_sym_literalString_repeat1];
   ACTIONS 397 [anon_sym_SEMI]; ACTIONS 399 [anon_sym_LBRACK]; ACTIONS 401 [anon_sym_LPAREN];
   ACTIONS 403 [aux_sym__literalString_token1]; ACTIONS 405 [anon_sym_POUND];
   ACTIONS 407 [aux_sym__literalInt_token1]; ACTIONS 409 [aux_sym__literalInt_token2;
   aux_sym__literalInt_token3]; ACTIONS 407 [aux_sym__literalFloat_token1];
   ACTIONS 411 [aux_sym_ppUsesBlock_token1]; ACTIONS 413 [sym_kAdd; sym_kSub];
   ACTIONS 415 [sym_kAt]; ACTIONS 417 [sym_kTrue; sym_kFalse]; ACTIONS 419 [sym_labelNumber];
   ACTIONS 3 [sym__space]; ACTIONS 5 [sym_ppDirective]; ACTIONS 3 [sym_comment];
   ACTIONS 417 [sym_ppFragmentExpr]; ACTIONS 397 [sym_ppFragmentStmt];
   ACTIONS 403 [sym__literalStringMultiline]; ACTIONS 421 [sym_identifier];
   ACTIONS 423 [sym_kSpecialize]; ACTIONS 427 [sym_kAsm]; ACTIONS 429 [sym_kBegin];
   ACTIONS 431 [sym_kCase]; ACTIONS 433 [sym_kConst]; ACTIONS 2257 [sym_kEnd];
   ACTIONS 437 [sym_kFor]; ACTIONS 439 [sym_kFunction]; ACTIONS 441 [sym_kGoto];
   ACTIONS 443 [sym_kIf]; ACTIONS 445 [sym_kInherited]; ACTIONS 417 [sym_kNil];
   ACTIONS 415 [sym_kNot]; ACTIONS 439 [sym_kProcedure]; ACTIONS 447 [sym_kRaise];
   ACTIONS 449 [sym_kRepeat]; ACTIONS 451 [sym_kString]; ACTIONS 453 [sym_kTry];
   ACTIONS 455 [sym_kVar]; ACTIONS 457 [sym_kWhile]; ACTIONS 459 [sym_kWith]].

(** State 333. *)
Definition ts_parse_table_333 : parse_row :=
  [STATE 6213 [sym_if]; STATE 6327 [sym_ifElse; sym_while; sym_repeat; sym_for; sym_foreach;
   sym_try; sym_case; sym_block; sym_asm; sym_with; sym_raise; sym_statement; sym_goto;
   sym__statement]; STATE 15549 [sym_ifTr; sym_ifElseTr; sym_whileTr; sym_repeatTr; sym_forTr;
   sym_foreachTr; sym_tryTr; sym_caseTr]; STATE 14251 [sym_blockTr]; STATE 15549 [sym_asmTr;
   sym_withTr; sym_raiseTr; sym_statementTr; sym_gotoTr; sym__statementTr];
   STATE 13915 [sym_assignment]; STATE 11785 [sym_varAssignDef]; STATE 13915 [sym_varDef;
   sym_constDef]; STATE 6166 [sym_label]; STATE 15549 [sym__statementsTr]; STATE 8019 [sym__expr;
   sym_exprConditional]; STATE 7478 [sym__ref; sym_lambda; sym_inherited; sym_exprDot;
   sym_exprDeref; sym_exprAs; sym_exprTpl; sym_exprSubscript; sym_exprCall];
   STATE 8019 [sym_exprBinary; sym_exprUnary]; STATE 7478 [sym_exprParens; sym_exprBrackets;
   sym__literal; sym_literalString]; STATE 6664 [sym__literalString; sym_literalChar];
   STATE 7478 [sym_literalNumber]; STATE 7742 [sym__literalInt; sym__literalFloat];
   STATE 1380 [sym__ppIf]; STATE 6327 [sym__ppStatementBlock];
   STATE 11840 [aux_sym_labeledStatement_repeat1]; STATE 863 [aux_sym__statementsTr_repeat1];
   STATE 6664 [aux_sym_literalString_repeat1]; ACTIONS 397 [anon_sym_SEMI];
   ACTIONS 2259 [anon_sym_COLON]; ACTIONS 399 [anon_sym_LBRACK]; ACTIONS 401 [anon_sym_LPAREN];
   ACTIONS 403 [aux_sym__literalString_token1]; ACTIONS 405 [anon_sym_POUND];
   ACTIONS 407 [aux_sym__literalInt_token1]; ACTIONS 409 [aux_sym__literalInt_token2;
   aux_sym__literalInt_token3]; ACTIONS 407 [aux_sym__literalFloat_token1];
   ACTIONS 411 [aux_sym_ppUsesBlock_token1]; ACTIONS 413 [sym_kAdd; sym_kSub];
   ACTIONS 415 [sym_kAt]; ACTIONS 417 [sym_kTrue; sym_kFalse]; ACTIONS 419 [sym_labelNumber];
   ACTIONS 3 [sym__space]; ACTIONS 5 [sym_ppDirective]; ACTIONS 3 [sym_comment];
   ACTIONS 417 [sym_ppFragmentExpr]; ACTIONS 397 [sym_ppFragmentStmt];
   ACTIONS 403 [sym__literalStringMultiline]; ACTIONS 421 [sym_identifier];
   ACTIONS 423 [sym_kSpecialize]; ACTIONS 427 [sym_kAsm]; ACTIONS 429 [sym_kBegin];
   ACTIONS 431 [sym_kCase]; ACTIONS 433 [sym_kConst]; ACTIONS 2261 [sym_kEnd];
   ACTIONS 437 [sym_kFor]; ACTIONS 439 [sym_kFunction]; ACTIONS 441 [sym_kGoto];
   ACTIONS 443 [sym_kIf]; ACTIONS 445 [sym_kInherited]; ACTIONS 417 [sym_kNil];
   ACTIONS 415 [sym_kNot]; ACTIONS 439 [sym_kProcedure]; ACTIONS 447 [sym_kRaise];
   ACTIONS 449 [sym_kRepeat]; ACTIONS 451 [sym_kString]; ACTIONS 453 [sym_kTry];
   ACTIONS 455 [sym_kVar]; ACTIONS 457 [sym_kWhile]; ACTIONS 459 [sym_kWith]].

(** State 334. *)
Definition ts_parse_table_334 : parse_row :=
  [STATE 6213 [sym_if]; STATE 6327 [sym_ifElse; sym_while; sym_repeat; sym_for; sym_foreach;
   sym_try; sym_case; sym_block; sym_asm; sym_with; sym_raise; sym_statement; sym_goto;
   sym__statement]; STATE 15554 [sym_ifTr; sym_ifElseTr; sym_whileTr; sym_repeatTr; sym_forTr;
   sym_foreachTr; sym_tryTr; sym_caseTr]; STATE 14251 [sym_blockTr]; STATE 15554 [sym_asmTr;
   sym_withTr; sym_raiseTr; sym_statementTr; sym_gotoTr; sym__statementTr];
   STATE 13915 [sym_assignment]; STATE 11785 [sym_varAssignDef]; STATE 13915 [sym_varDef;
   sym_constDef]; STATE 6166 [sym_label]; STATE 15554 [sym__statementsTr]; STATE 8019 [sym__expr;
   sym_exprConditional]; STATE 7478 [sym__ref; sym_lambda; sym_inherited; sym_exprDot;
   sym_exprDeref; sym_exprAs; sym_exprTpl; sym_exprSubscript; sym_exprCall];
   STATE 8019 [sym_exprBinary; sym_exprUnary]; STATE 7478 [sym_exprParens; sym_exprBrackets;
   sym__literal; sym_literalString]; STATE 6664 [sym__literalString; sym_literalChar];
   STATE 7478 [sym_literalNumber]; STATE 7742 [sym__literalInt; sym__literalFloat];
   STATE 1380 [sym__ppIf]; STATE 6327 [sym__ppStatementBlock];
   STATE 11840 [aux_sym_labeledStatement_repeat1]; STATE 863 [aux_sym__statementsTr_repeat1];
   STATE 6664 [aux_sym_literalString_repeat1]; ACTIONS 397 [anon_sym_SEMI];
   ACTIONS 2263 [anon_sym_COLON]; ACTIONS 399 [anon_sym_LBRACK]; ACTIONS 401 [anon_sym_LPAREN];
   ACTIONS 403 [aux_sym__literalString_token1]; ACTIONS 405 [anon_sym_POUND];
   ACTIONS 407 [aux_sym__literalInt_token1]; ACTIONS 409 [aux_sym__literalInt_token2;
   aux_sym__literalInt_token3]; ACTIONS 407 [aux_sym__literalFloat_token1];
   ACTIONS 411 [aux_sym_ppUsesBlock_token1]; ACTIONS 413 [sym_kAdd; sym_kSub];
   ACTIONS 415 [sym_kAt]; ACTIONS 417 [sym_kTrue; sym_kFalse]; ACTIONS 419 [sym_labelNumber];
   ACTIONS 3 [sym__space]; ACTIONS 5 [sym_ppDirective]; ACTIONS 3 [sym_comment];
   ACTIONS 417 [sym_ppFragmentExpr]; ACTIONS 397 [sym_ppFragmentStmt];
   ACTIONS 403 [sym__literalStringMultiline]; ACTIONS 421 [sym_identifier];
   ACTIONS 423 [sym_kSpecialize]; ACTIONS 427 [sym_kAsm]; ACTIONS 429 [sym_kBegin];
   ACTIONS 431 [sym_kCase]; ACTIONS 433 [sym_kConst]; ACTIONS 2265 [sym_kEnd];
   ACTIONS 437 [sym_kFor]; ACTIONS 439 [sym_kFunction]; ACTIONS 441 [sym_kGoto];
   ACTIONS 443 [sym_kIf]; ACTIONS 445 [sym_kInherited]; ACTIONS 417 [sym_kNil];
   ACTIONS 415 [sym_kNot]; ACTIONS 439 [sym_kProcedure]; ACTIONS 447 [sym_kRaise];
   ACTIONS 449 [sym_kRepeat]; ACTIONS 451 [sym_kString]; ACTIONS 453 [sym_kTry];
   ACTIONS 455 [sym_kVar]; ACTIONS 457 [sym_kWhile]; ACTIONS 459 [sym_kWith]].

(** State 335. *)
Definition ts_parse_table_335 : parse_row :=
  [STATE 6213 [sym_if]; STATE 6327 [sym_ifElse; sym_while; sym_repeat; sym_for; sym_foreach;
   sym_try; sym_case; sym_block; sym_asm; sym_with; sym_raise; sym_statement; sym_goto;
   sym__statement]; STATE 15558 [sym_ifTr; sym_ifElseTr; sym_whileTr; sym_repeatTr; sym_forTr;
   sym_foreachTr; sym_tryTr; sym_caseTr]; STATE 14251 [sym_blockTr]; STATE 15558 [sym_asmTr;
   sym_withTr; sym_raiseTr; sym_statementTr; sym_gotoTr; sym__statementTr];
   STATE 13915 [sym_assignment]; STATE 11785 [sym_varAssignDef]; STATE 13915 [sym_varDef;
   sym_constDef]; STATE 6166 [sym_label]; STATE 15558 [sym__statementsTr]; STATE 8019 [sym__expr;
   sym_exprConditional]; STATE 7478 [sym__ref; sym_lambda; sym_inherited; sym_exprDot;
   sym_exprDeref; sym_exprAs; sym_exprTpl; sym_exprSubscript; sym_exprCall];
   STATE 8019 [sym_exprBinary; sym_exprUnary]; STATE 7478 [sym_exprParens; sym_exprBrackets;
   sym__literal; sym_literalString]; STATE 6664 [sym__literalString; sym_literalChar];
   STATE 7478 [sym_literalNumber]; STATE 7742 [sym__literalInt; sym__literalFloat];
   STATE 1380 [sym__ppIf]; STATE 6327 [sym__ppStatementBlock];
   STATE 11840 [aux_sym_labeledStatement_repeat1]; STATE 863 [aux_sym__statementsTr_repeat1];
   STATE 6664 [aux_sym_literalString_repeat1]; ACTIONS 397 [anon_sym_SEMI];
   ACTIONS 2267 [anon_sym_COLON]; ACTIONS 399 [anon_sym_LBRACK]; ACTIONS 401 [anon_sym_LPAREN];
   ACTIONS 403 [aux_sym__literalString_token1]; ACTIONS 405 [anon_sym_POUND];
   ACTIONS 407 [aux_sym__literalInt_token1]; ACTIONS 409 [aux_sym__literalInt_token2;
   aux_sym__literalInt_token3]; ACTIONS 407 [aux_sym__literalFloat_token1];
   ACTIONS 411 [aux_sym_ppUsesBlock_token1]; ACTIONS 413 [sym_kAdd; sym_kSub];
   ACTIONS 415 [sym_kAt]; ACTIONS 417 [sym_kTrue; sym_kFalse]; ACTIONS 419 [sym_labelNumber];
   ACTIONS 3 [sym__space]; ACTIONS 5 [sym_ppDirective]; ACTIONS 3 [sym_comment];
   ACTIONS 417 [sym_ppFragmentExpr]; ACTIONS 397 [sym_ppFragmentStmt];
   ACTIONS 403 [sym__literalStringMultiline]; ACTIONS 421 [sym_identifier];
   ACTIONS 423 [sym_kSpecialize]; ACTIONS 427 [sym_kAsm]; ACTIONS 429 [sym_kBegin];
   ACTIONS 431 [sym_kCase]; ACTIONS 433 [sym_kConst]; ACTIONS 2269 [sym_kEnd];
   ACTIONS 437 [sym_kFor]; ACTIONS 439 [sym_kFunction]; ACTIONS 441 [sym_kGoto];
   ACTIONS 443 [sym_kIf]; ACTIONS 445 [sym_kInherited]; ACTIONS 417 [sym_kNil];
   ACTIONS 415 [sym_kNot]; ACTIONS 439 [sym_kProcedure]; ACTIONS 447 [sym_kRaise];
   ACTIONS 449 [sym_kRepeat]; ACTIONS 451 [sym_kString]; ACTIONS 453 [sym_kTry];
   ACTIONS 455 [sym_kVar]; ACTIONS 457 [sym_kWhile]; ACTIONS 459 [sym_kWith]].

(** State 336. *)
Definition ts_parse_table_336 : parse_row :=
  [STATE 6213 [sym_if]; STATE 6327 [sym_ifElse; sym_while; sym_repeat; sym_for; sym_foreach;
   sym_try; sym_case; sym_block; sym_asm; sym_with; sym_raise; sym_statement; sym_goto;
   sym__statement]; STATE 15991 [sym_ifTr; sym_ifElseTr; sym_whileTr; sym_repeatTr; sym_forTr;
   sym_foreachTr; sym_tryTr; sym_caseTr]; STATE 14251 [sym_blockTr]; STATE 15991 [sym_asmTr;
   sym_withTr; sym_raiseTr; sym_statementTr; sym_gotoTr; sym__statementTr];
   STATE 13915 [sym_assignment]; STATE 11785 [sym_varAssignDef]; STATE 13915 [sym_varDef;
   sym_constDef]; STATE 6166 [sym_label]; STATE 15991 [sym__statementsTr];
   STATE 15623 [sym_statementsTr]; STATE 8019 [sym__expr; sym_exprConditional];
   STATE 7478 [sym__ref; sym_lambda; sym_inherited; sym_exprDot; sym_exprDeref; sym_exprAs;
   sym_exprTpl; sym_exprSubscript; sym_exprCall]; STATE 8019 [sym_exprBinary; sym_exprUnary];
   STATE 7478 [sym_exprParens; sym_exprBrackets; sym__literal; sym_literalString];
   STATE 6664 [sym__literalString; sym_literalChar]; STATE 7478 [sym_literalNumber];
   STATE 7742 [sym__literalInt; sym__literalFloat]; STATE 1380 [sym__ppIf];
   STATE 6327 [sym__ppStatementBlock]; STATE 11840 [aux_sym_labeledStatement_repeat1];
   STATE 863 [aux_sym__statementsTr_repeat1]; STATE 6664 [aux_sym_literalString_repeat1];
   ACTIONS 397 [anon_sym_SEMI]; ACTIONS 399 [anon_sym_LBRACK]; ACTIONS 401 [anon_sym_LPAREN];
   ACTIONS 403 [aux_sym__literalString_token1]; ACTIONS 405 [anon_sym_POUND];
   ACTIONS 407 [aux_sym__literalInt_token1]; ACTIONS 409 [aux_sym__literalInt_token2;
   aux_sym__literalInt_token3]; ACTIONS 407 [aux_sym__literalFloat_token1];
   ACTIONS 411 [aux_sym_ppUsesBlock_token1]; ACTIONS 413 [sym_kAdd; sym_kSub];
   ACTIONS 415 [sym_kAt]; ACTIONS 417 [sym_kTrue; sym_kFalse]; ACTIONS 419 [sym_labelNumber];
   ACTIONS 3 [sym__space]; ACTIONS 5 [sym_ppDirective]; ACTIONS 3 [sym_comment];
   ACTIONS 417 [sym_ppFragmentExpr]; ACTIONS 397 [sym_ppFragmentStmt];
   ACTIONS 403 [sym__literalStringMultiline]; ACTIONS 421 [sym_identifier];
   ACTIONS 423 [sym_kSpecialize]; ACTIONS 427 [sym_kAsm]; ACTIONS 429 [sym_kBegin];
   ACTIONS 431 [sym_kCase]; ACTIONS 433 [sym_kConst]; ACTIONS 2271 [sym_kEnd];
   ACTIONS 437 [sym_kFor]; ACTIONS 439 [sym_kFunction]; ACTIONS 441 [sym_kGoto];
   ACTIONS 443 [sym_kIf]; ACTIONS 445 [sym_kInherited]; ACTIONS 417 [sym_kNil];
   ACTIONS 415 [sym_kNot]; ACTIONS 439 [sym_kProcedure]; ACTIONS 447 [sym_kRaise];
   ACTIONS 449 [sym_kRepeat]; ACTIONS 451 [sym_kString]; ACTIONS 453 [sym_kTry];
   ACTIONS 455 [sym_kVar]; ACTIONS 457 [sym_kWhile]; ACTIONS 459 [sym_kWith]].

(** State 337. *)
Definition ts_parse_table_337 : parse_row :=
  [STATE 2899 [sym__ppIf]; STATE 996 [sym__procAttributeNoExt];
   STATE 1005 [sym__procAttributesPp]; STATE 15262 [sym_procAttribute];
   STATE 183 [aux_sym__declProc_repeat1]; ACTIONS 2273 [anon_sym_SEMI; anon_sym_COMMA];
   ACTIONS 2275 [anon_sym_LBRACK]; ACTIONS 2278 [anon_sym_LPAREN];
   ACTIONS 2273 [aux_sym__literalString_token1; anon_sym_POUND];
   ACTIONS 2278 [aux_sym__literalInt_token1]; ACTIONS 2273 [aux_sym__literalInt_token2;
   aux_sym__literalInt_token3]; ACTIONS 2278 [aux_sym__literalFloat_token1];
   ACTIONS 2280 [aux_sym_ppUsesBlock_token1]; ACTIONS 2273 [aux_sym_ppUsesBlock_token2;
   aux_sym_ppUsesBlock_token3]; ACTIONS 2278 [sym_kAdd; sym_kSub]; ACTIONS 2273 [sym_kAt;
   sym_kTrue; sym_kFalse]; ACTIONS 3 [sym__space]; ACTIONS 5 [sym_ppDirective];
   ACTIONS 3 [sym_comment]; ACTIONS 2273 [sym_ppFragmentExpr; sym__literalStringMultiline;
   sym_identifier]; ACTIONS 2283 [sym_kDefault; sym_kNodefault]; ACTIONS 2286 [sym_kDispId];
   ACTIONS 2273 [sym_kGeneric; sym_kSpecialize; sym_kOperator]; ACTIONS 2289 [sym_kPublic];
   ACTIONS 2273 [sym_kForward]; ACTIONS 2283 [sym_kStatic; sym_kVirtual; sym_kAbstract;
   sym_kDynamic; sym_kOverride; sym_kOverload; sym_kReintroduce; sym_kStdcall; sym_kCdecl;
   sym_kCppdecl; sym_kPascal; sym_kRegister; sym_kMwpascal]; ACTIONS 2273 [sym_kExternal];
   ACTIONS 2292 [sym_kMessage]; ACTIONS 2295 [sym_kDeprecated]; ACTIONS 2283 [sym_kExperimental;
   sym_kPlatform; sym_kUnimplemented; sym_kCvar]; ACTIONS 2298 [sym_kExport];
   ACTIONS 2283 [sym_kFar; sym_kNear; sym_kSafecall; sym_kAssembler; sym_kNostackframe;
   sym_kInterrupt; sym_kNoreturn; sym_kIocheck; sym_kLocal; sym_kHardfloat; sym_kSoftfloat;
   sym_kMs_abi_default; sym_kMs_abi_cdecl; sym_kSaveregisters; sym_kSysv_abi_default;
   sym_kSysv_abi_cdecl; sym_kVectorcall; sym_kVarargs; sym_kWinapi]; ACTIONS 2301 [sym_kAlias];
   ACTIONS 2273 [sym_kAsm; sym_kBegin; sym_kCase; sym_kClass; sym_kConst; sym_kConstructor;
   sym_kDestructor; sym_kExports; sym_kFor; sym_kFunction; sym_kGoto; sym_kIf; sym_kInherited];
   ACTIONS 1016 [sym_kInline]; ACTIONS 2273 [sym_kLabel; sym_kNil; sym_kNot; sym_kProcedure;
   sym_kProperty; sym_kRaise; sym_kRepeat; sym_kResourcestring; sym_kString; sym_kThreadvar;
   sym_kTry; sym_kType; sym_kUses; sym_kVar; sym_kWhile; sym_kWith]].

(** State 338. *)
Definition ts_parse_table_338 : parse_row :=
  [STATE 6213 [sym_if]; STATE 6327 [sym_ifElse; sym_while; sym_repeat; sym_for; sym_foreach;
   sym_try; sym_case; sym_block; sym_asm; sym_with; sym_raise; sym_statement; sym_goto;
   sym__statement]; STATE 15991 [sym_ifTr; sym_ifElseTr; sym_whileTr; sym_repeatTr; sym_forTr;
   sym_foreachTr; sym_tryTr; sym_caseTr]; STATE 14251 [sym_blockTr]; STATE 15991 [sym_asmTr;
   sym_withTr; sym_raiseTr; sym_statementTr; sym_gotoTr; sym__statementTr];
   STATE 13915 [sym_assignment]; STATE 11785 [sym_varAssignDef]; STATE 13915 [sym_varDef;
   sym_constDef]; STATE 6166 [sym_label]; STATE 15991 [sym__statementsTr];
   STATE 15666 [sym_statementsTr]; STATE 8019 [sym__expr; sym_exprConditional];
   STATE 7478 [sym__ref; sym_lambda; sym_inherited; sym_exprDot; sym_exprDeref; sym_exprAs;
   sym_exprTpl; sym_exprSubscript; sym_exprCall]; STATE 8019 [sym_exprBinary; sym_exprUnary];
   STATE 7478 [sym_exprParens; sym_exprBrackets; sym__literal; sym_literalString];
   STATE 6664 [sym__literalString; sym_literalChar]; STATE 7478 [sym_literalNumber];
   STATE 7742 [sym__literalInt; sym__literalFloat]; STATE 1380 [sym__ppIf];
   STATE 6327 [sym__ppStatementBlock]; STATE 11840 [aux_sym_labeledStatement_repeat1];
   STATE 863 [aux_sym__statementsTr_repeat1]; STATE 6664 [aux_sym_literalString_repeat1];
   ACTIONS 397 [anon_sym_SEMI]; ACTIONS 399 [anon_sym_LBRACK]; ACTIONS 401 [anon_sym_LPAREN];
   ACTIONS 403 [aux_sym__literalString_token1]; ACTIONS 405 [anon_sym_POUND];
   ACTIONS 407 [aux_sym__literalInt_token1]; ACTIONS 409 [aux_sym__literalInt_token2;
   aux_sym__literalInt_token3]; ACTIONS 407 [aux_sym__literalFloat_token1];
   ACTIONS 411 [aux_sym_ppUsesBlock_token1]; ACTIONS 413 [sym_kAdd; sym_kSub];
   ACTIONS 415 [sym_kAt]; ACTIONS 417 [sym_kTrue; sym_kFalse]; ACTIONS 419 [sym_labelNumber];
   ACTIONS 3 [sym__space]; ACTIONS 5 [sym_ppDirective]; ACTIONS 3 [sym_comment];
   ACTIONS 417 [sym_ppFragmentExpr]; ACTIONS 397 [sym_ppFragmentStmt];
   ACTIONS 403 [sym__literalStringMultiline]; ACTIONS 421 [sym_identifier];
   ACTIONS 423 [sym_kSpecialize]; ACTIONS 427 [sym_kAsm]; ACTIONS 429 [sym_kBegin];
   ACTIONS 431 [sym_kCase]; ACTIONS 433 [sym_kConst]; ACTIONS 2304 [sym_kEnd];
   ACTIONS 437 [sym_kFor]; ACTIONS 439 [sym_kFunction]; ACTIONS 441 [sym_kGoto];
   ACTIONS 443 [sym_kIf]; ACTIONS 445 [sym_kInherited]; ACTIONS 417 [sym_kNil];
   ACTIONS 415 [sym_kNot]; ACTIONS 439 [sym_kProcedure]; ACTIONS 447 [sym_kRaise];
   ACTIONS 449 [sym_kRepeat]; ACTIONS 451 [sym_kString]; ACTIONS 453 [sym_kTry];
   ACTIONS 455 [sym_kVar]; ACTIONS 457 [sym_kWhile]; ACTIONS 459 [sym_kWith]].

(** State 339. *)
Definition ts_parse_table_339 : parse_row :=
  [STATE 6213 [sym_if]; STATE 6327 [sym_ifElse; sym_while; sym_repeat; sym_for; sym_foreach;
   sym_try; sym_case; sym_block; sym_asm; sym_with; sym_raise; sym_statement; sym_goto;
   sym__statement]; STATE 15674 [sym_ifTr; sym_ifElseTr; sym_whileTr; sym_repeatTr; sym_forTr;
   sym_foreachTr; sym_tryTr; sym_caseTr]; STATE 14251 [sym_blockTr]; STATE 15674 [sym_asmTr;
   sym_withTr; sym_raiseTr; sym_statementTr; sym_gotoTr; sym__statementTr];
   STATE 13915 [sym_assignment]; STATE 11785 [sym_varAssignDef]; STATE 13915 [sym_varDef;
   sym_constDef]; STATE 6166 [sym_label]; STATE 15674 [sym__statementsTr]; STATE 8019 [sym__expr;
   sym_exprConditional]; STATE 7478 [sym__ref; sym_lambda; sym_inherited; sym_exprDot;
   sym_exprDeref; sym_exprAs; sym_exprTpl; sym_exprSubscript; sym_exprCall];
   STATE 8019 [sym_exprBinary; sym_exprUnary]; STATE 7478 [sym_exprParens; sym_exprBrackets;
   sym__literal; sym_literalString]; STATE 6664 [sym__literalString; sym_literalChar];
   STATE 7478 [sym_literalNumber]; STATE 7742 [sym__literalInt; sym__literalFloat];
   STATE 1380 [sym__ppIf]; STATE 6327 [sym__ppStatementBlock];
   STATE 11840 [aux_sym_labeledStatement_repeat1]; STATE 863 [aux_sym__statementsTr_repeat1];
   STATE 6664 [aux_sym_literalString_repeat1]; ACTIONS 397 [anon_sym_SEMI];
   ACTIONS 2306 [anon_sym_COLON]; ACTIONS 399 [anon_sym_LBRACK]; ACTIONS 401 [anon_sym_LPAREN];
   ACTIONS 403 [aux_sym__literalString_token1]; ACTIONS 405 [anon_sym_POUND];
   ACTIONS 407 [aux_sym__literalInt_token1]; ACTIONS 409 [aux_sym__literalInt_token2;
   aux_sym__literalInt_token3]; ACTIONS 407 [aux_sym__literalFloat_token1];
   ACTIONS 411 [aux_sym_ppUsesBlock_token1]; ACTIONS 413 [sym_kAdd; sym_kSub];
   ACTIONS 415 [sym_kAt]; ACTIONS 417 [sym_kTrue; sym_kFalse]; ACTIONS 419 [sym_labelNumber];
   ACTIONS 3 [sym__space]; ACTIONS 5 [sym_ppDirective]; ACTIONS 3 [sym_comment];
   ACTIONS 417 [sym_ppFragmentExpr]; ACTIONS 397 [sym_ppFragmentStmt];
   ACTIONS 403 [sym__literalStringMultiline]; ACTIONS 421 [sym_identifier];
   ACTIONS 423 [sym_kSpecialize]; ACTIONS 427 [sym_kAsm]; ACTIONS 429 [sym_kBegin];
   ACTIONS 431 [sym_kCase]; ACTIONS 433 [sym_kConst]; ACTIONS 2308 [sym_kEnd];
   ACTIONS 437 [sym_kFor]; ACTIONS 439 [sym_kFunction]; ACTIONS 441 [sym_kGoto];
   ACTIONS 443 [sym_kIf]; ACTIONS 445 [sym_kInherited]; ACTIONS 417 [sym_kNil];
   ACTIONS 415 [sym_kNot]; ACTIONS 439 [sym_kProcedure]; ACTIONS 447 [sym_kRaise];
   ACTIONS 449 [sym_kRepeat]; ACTIONS 451 [sym_kString]; ACTIONS 453 [sym_kTry];
   ACTIONS 455 [sym_kVar]; ACTIONS 457 [sym_kWhile]; ACTIONS 459 [sym_kWith]].

(** State 340. *)
Definition ts_parse_table_340 : parse_row :=
  [STATE 6213 [sym_if]; STATE 6327 [sym_ifElse; sym_while; sym_repeat; sym_for; sym_foreach;
   sym_try; sym_case; sym_block; sym_asm; sym_with; sym_raise; sym_statement; sym_goto;
   sym__statement]; STATE 15690 [sym_ifTr; sym_ifElseTr; sym_whileTr; sym_repeatTr; sym_forTr;
   sym_foreachTr; sym_tryTr; sym_caseTr]; STATE 14251 [sym_blockTr]; STATE 15690 [sym_asmTr;
   sym_withTr; sym_raiseTr; sym_statementTr; sym_gotoTr; sym__statementTr];
   STATE 13915 [sym_assignment]; STATE 11785 [sym_varAssignDef]; STATE 13915 [sym_varDef;
   sym_constDef]; STATE 6166 [sym_label]; STATE 15690 [sym__statementsTr]; STATE 8019 [sym__expr;
   sym_exprConditional]; STATE 7478 [sym__ref; sym_lambda; sym_inherited; sym_exprDot;
   sym_exprDeref; sym_exprAs; sym_exprTpl; sym_exprSubscript; sym_exprCall];
   STATE 8019 [sym_exprBinary; sym_exprUnary]; STATE 7478 [sym_exprParens; sym_exprBrackets;
   sym__literal; sym_literalString]; STATE 6664 [sym__literalString; sym_literalChar];
   STATE 7478 [sym_literalNumber]; STATE 7742 [sym__literalInt; sym__literalFloat];
   STATE 1380 [sym__ppIf]; STATE 6327 [sym__ppStatementBlock];
   STATE 11840 [aux_sym_labeledStatement_repeat1]; STATE 863 [aux_sym__statementsTr_repeat1];
   STATE 6664 [aux_sym_literalString_repeat1]; ACTIONS 397 [anon_sym_SEMI];
   ACTIONS 2310 [anon_sym_COLON]; ACTIONS 399 [anon_sym_LBRACK]; ACTIONS 401 [anon_sym_LPAREN];
   ACTIONS 403 [aux_sym__literalString_token1]; ACTIONS 405 [anon_sym_POUND];
   ACTIONS 407 [aux_sym__literalInt_token1]; ACTIONS 409 [aux_sym__literalInt_token2;
   aux_sym__literalInt_token3]; ACTIONS 407 [aux_sym__literalFloat_token1];
   ACTIONS 411 [aux_sym_ppUsesBlock_token1]; ACTIONS 413 [sym_kAdd; sym_kSub];
   ACTIONS 415 [sym_kAt]; ACTIONS 417 [sym_kTrue; sym_kFalse]; ACTIONS 419 [sym_labelNumber];
   ACTIONS 3 [sym__space]; ACTIONS 5 [sym_ppDirective]; ACTIONS 3 [sym_comment];
   ACTIONS 417 [sym_ppFragmentExpr]; ACTIONS 397 [sym_ppFragmentStmt];
   ACTIONS 403 [sym__literalStringMultiline]; ACTIONS 421 [sym_identifier];
   ACTIONS 423 [sym_kSpecialize]; ACTIONS 427 [sym_kAsm]; ACTIONS 429 [sym_kBegin];
   ACTIONS 431 [sym_kCase]; ACTIONS 433 [sym_kConst]; ACTIONS 2312 [sym_kEnd];
   ACTIONS 437 [sym_kFor]; ACTIONS 439 [sym_kFunction]; ACTIONS 441 [sym_kGoto];
   ACTIONS 443 [sym_kIf]; ACTIONS 445 [sym_kInherited]; ACTIONS 417 [sym_kNil];
   ACTIONS 415 [sym_kNot]; ACTIONS 439 [sym_kProcedure]; ACTIONS 447 [sym_kRaise];
   ACTIONS 449 [sym_kRepeat]; ACTIONS 451 [sym_kString]; ACTIONS 453 [sym_kTry];
   ACTIONS 455 [sym_kVar]; ACTIONS 457 [sym_kWhile]; ACTIONS 459 [sym_kWith]].

(** State 341. *)
Definition ts_parse_table_341 : parse_row :=
  [STATE 6213 [sym_if]; STATE 6327 [sym_ifElse; sym_while; sym_repeat; sym_for; sym_foreach;
   sym_try; sym_case; sym_block; sym_asm; sym_with; sym_raise; sym_statement; sym_goto;
   sym__statement]; STATE 15699 [sym_ifTr; sym_ifElseTr; sym_whileTr; sym_repeatTr; sym_forTr;
   sym_foreachTr; sym_tryTr; sym_caseTr]; STATE 14251 [sym_blockTr]; STATE 15699 [sym_asmTr;
   sym_withTr; sym_raiseTr; sym_statementTr; sym_gotoTr; sym__statementTr];
   STATE 13915 [sym_assignment]; STATE 11785 [sym_varAssignDef]; STATE 13915 [sym_varDef;
   sym_constDef]; STATE 6166 [sym_label]; STATE 15699 [sym__statementsTr]; STATE 8019 [sym__expr;
   sym_exprConditional]; STATE 7478 [sym__ref; sym_lambda; sym_inherited; sym_exprDot;
   sym_exprDeref; sym_exprAs; sym_exprTpl; sym_exprSubscript; sym_exprCall];
   STATE 8019 [sym_exprBinary; sym_exprUnary]; STATE 7478 [sym_exprParens; sym_exprBrackets;
   sym__literal; sym_literalString]; STATE 6664 [sym__literalString; sym_literalChar];
   STATE 7478 [sym_literalNumber]; STATE 7742 [sym__literalInt; sym__literalFloat];
   STATE 1380 [sym__ppIf]; STATE 6327 [sym__ppStatementBlock];
   STATE 11840 [aux_sym_labeledStatement_repeat1]; STATE 863 [aux_sym__statementsTr_repeat1];
   STATE 6664 [aux_sym_literalString_repeat1]; ACTIONS 397 [anon_sym_SEMI];
   ACTIONS 2314 [anon_sym_COLON]; ACTIONS 399 [anon_sym_LBRACK]; ACTIONS 401 [anon_sym_LPAREN];
   ACTIONS 403 [aux_sym__literalString_token1]; ACTIONS 405 [anon_sym_POUND];
   ACTIONS 407 [aux_sym__literalInt_token1]; ACTIONS 409 [aux_sym__literalInt_token2;
   aux_sym__literalInt_token3]; ACTIONS 407 [aux_sym__literalFloat_token1];
   ACTIONS 411 [aux_sym_ppUsesBlock_token1]; ACTIONS 413 [sym_kAdd; sym_kSub];
   ACTIONS 415 [sym_kAt]; ACTIONS 417 [sym_kTrue; sym_kFalse]; ACTIONS 419 [sym_labelNumber];
   ACTIONS 3 [sym__space]; ACTIONS 5 [sym_ppDirective]; ACTIONS 3 [sym_comment];
   ACTIONS 417 [sym_ppFragmentExpr]; ACTIONS 397 [sym_ppFragmentStmt];
   ACTIONS 403 [sym__literalStringMultiline]; ACTIONS 421 [sym_identifier];
   ACTIONS 423 [sym_kSpecialize]; ACTIONS 427 [sym_kAsm]; ACTIONS 429 [sym_kBegin];
   ACTIONS 431 [sym_kCase]; ACTIONS 433 [sym_kConst]; ACTIONS 2316 [sym_kEnd];
   ACTIONS 437 [sym_kFor]; ACTIONS 439 [sym_kFunction]; ACTIONS 441 [sym_kGoto];
   ACTIONS 443 [sym_kIf]; ACTIONS 445 [sym_kInherited]; ACTIONS 417 [sym_kNil];
   ACTIONS 415 [sym_kNot]; ACTIONS 439 [sym_kProcedure]; ACTIONS 447 [sym_kRaise];
   ACTIONS 449 [sym_kRepeat]; ACTIONS 451 [sym_kString]; ACTIONS 453 [sym_kTry];
   ACTIONS 455 [sym_kVar]; ACTIONS 457 [sym_kWhile]; ACTIONS 459 [sym_kWith]].

(** State 342. *)
Definition ts_parse_table_342 : parse_row :=
  [STATE 2899 [sym__ppIf]; STATE 996 [sym__procAttributeNoExt];
   STATE 1005 [sym__procAttributesPp]; STATE 15262 [sym_procAttribute];
   STATE 414 [aux_sym__declProc_repeat1]; ACTIONS 2318 [anon_sym_SEMI; anon_sym_COMMA];
   ACTIONS 2320 [anon_sym_LBRACK]; ACTIONS 2323 [anon_sym_LPAREN];
   ACTIONS 2318 [aux_sym__literalString_token1; anon_sym_POUND];
   ACTIONS 2323 [aux_sym__literalInt_token1]; ACTIONS 2318 [aux_sym__literalInt_token2;
   aux_sym__literalInt_token3]; ACTIONS 2323 [aux_sym__literalFloat_token1];
   ACTIONS 2325 [aux_sym_ppUsesBlock_token1]; ACTIONS 2318 [aux_sym_ppUsesBlock_token2;
   aux_sym_ppUsesBlock_token3]; ACTIONS 2323 [sym_kAdd; sym_kSub]; ACTIONS 2318 [sym_kAt;
   sym_kTrue; sym_kFalse]; ACTIONS 3 [sym__space]; ACTIONS 5 [sym_ppDirective];
   ACTIONS 3 [sym_comment]; ACTIONS 2318 [sym_ppFragmentExpr; sym__literalStringMultiline;
   sym_identifier]; ACTIONS 2328 [sym_kDefault; sym_kNodefault]; ACTIONS 2331 [sym_kDispId];
   ACTIONS 2318 [sym_kGeneric; sym_kSpecialize; sym_kOperator]; ACTIONS 2334 [sym_kPublic];
   ACTIONS 2318 [sym_kForward]; ACTIONS 2328 [sym_kStatic; sym_kVirtual; sym_kAbstract;
   sym_kDynamic; sym_kOverride; sym_kOverload; sym_kReintroduce; sym_kStdcall; sym_kCdecl;
   sym_kCppdecl; sym_kPascal; sym_kRegister; sym_kMwpascal]; ACTIONS 2318 [sym_kExternal];
   ACTIONS 2337 [sym_kMessage]; ACTIONS 2340 [sym_kDeprecated]; ACTIONS 2328 [sym_kExperimental;
   sym_kPlatform; sym_kUnimplemented; sym_kCvar]; ACTIONS 2343 [sym_kExport];
   ACTIONS 2328 [sym_kFar; sym_kNear; sym_kSafecall; sym_kAssembler; sym_kNostackframe;
   sym_kInterrupt; sym_kNoreturn; sym_kIocheck; sym_kLocal; sym_kHardfloat; sym_kSoftfloat;
   sym_kMs_abi_default; sym_kMs_abi_cdecl; sym_kSaveregisters; sym_kSysv_abi_default;
   sym_kSysv_abi_cdecl; sym_kVectorcall; sym_kVarargs; sym_kWinapi]; ACTIONS 2346 [sym_kAlias];
   ACTIONS 2318 [sym_kAsm; sym_kBegin; sym_kCase; sym_kClass; sym_kConst; sym_kConstructor;
   sym_kDestructor; sym_kExports; sym_kFor; sym_kFunction; sym_kGoto; sym_kIf; sym_kInherited];
   ACTIONS 1016 [sym_kInline]; ACTIONS 2318 [sym_kLabel; sym_kNil; sym_kNot; sym_kProcedure;
   sym_kProperty; sym_kRaise; sym_kRepeat; sym_kResourcestring; sym_kString; sym_kThreadvar;
   sym_kTry; sym_kType; sym_kUses; sym_kVar; sym_kWhile; sym_kWith]].

(** State 343. *)
Definition ts_parse_table_343 : parse_row :=
  [STATE 6213 [sym_if]; STATE 6327 [sym_ifElse; sym_while; sym_repeat; sym_for; sym_foreach;
   sym_try; sym_case; sym_block; sym_asm; sym_with; sym_raise; sym_statement; sym_goto;
   sym__statement]; STATE 15991 [sym_ifTr; sym_ifElseTr; sym_whileTr; sym_repeatTr; sym_forTr;
   sym_foreachTr; sym_tryTr; sym_caseTr]; STATE 14251 [sym_blockTr]; STATE 15991 [sym_asmTr;
   sym_withTr; sym_raiseTr; sym_statementTr; sym_gotoTr; sym__statementTr];
   STATE 13915 [sym_assignment]; STATE 11785 [sym_varAssignDef]; STATE 13915 [sym_varDef;
   sym_constDef]; STATE 6166 [sym_label]; STATE 15991 [sym__statementsTr];
   STATE 15778 [sym_statementsTr]; STATE 8019 [sym__expr; sym_exprConditional];
   STATE 7478 [sym__ref; sym_lambda; sym_inherited; sym_exprDot; sym_exprDeref; sym_exprAs;
   sym_exprTpl; sym_exprSubscript; sym_exprCall]; STATE 8019 [sym_exprBinary; sym_exprUnary];
   STATE 7478 [sym_exprParens; sym_exprBrackets; sym__literal; sym_literalString];
   STATE 6664 [sym__literalString; sym_literalChar]; STATE 7478 [sym_literalNumber];
   STATE 7742 [sym__literalInt; sym__literalFloat]; STATE 1380 [sym__ppIf];
   STATE 6327 [sym__ppStatementBlock]; STATE 11840 [aux_sym_labeledStatement_repeat1];
   STATE 863 [aux_sym__statementsTr_repeat1]; STATE 6664 [aux_sym_literalString_repeat1];
   ACTIONS 397 [anon_sym_SEMI]; ACTIONS 399 [anon_sym_LBRACK]; ACTIONS 401 [anon_sym_LPAREN];
   ACTIONS 403 [aux_sym__literalString_token1]; ACTIONS 405 [anon_sym_POUND];
   ACTIONS 407 [aux_sym__literalInt_token1]; ACTIONS 409 [aux_sym__literalInt_token2;
   aux_sym__literalInt_token3]; ACTIONS 407 [aux_sym__literalFloat_token1];
   ACTIONS 411 [aux_sym_ppUsesBlock_token1]; ACTIONS 413 [sym_kAdd; sym_kSub];
   ACTIONS 415 [sym_kAt]; ACTIONS 417 [sym_kTrue; sym_kFalse]; ACTIONS 419 [sym_labelNumber];
   ACTIONS 3 [sym__space]; ACTIONS 5 [sym_ppDirective]; ACTIONS 3 [sym_comment];
   ACTIONS 417 [sym_ppFragmentExpr]; ACTIONS 397 [sym_ppFragmentStmt];
   ACTIONS 403 [sym__literalStringMultiline]; ACTIONS 421 [sym_identifier];
   ACTIONS 423 [sym_kSpecialize]; ACTIONS 427 [sym_kAsm]; ACTIONS 429 [sym_kBegin];
   ACTIONS 431 [sym_kCase]; ACTIONS 433 [sym_kConst]; ACTIONS 2349 [sym_kEnd];
   ACTIONS 437 [sym_kFor]; ACTIONS 439 [sym_kFunction]; ACTIONS 441 [sym_kGoto];
   ACTIONS 443 [sym_kIf]; ACTIONS 445 [sym_kInherited]; ACTIONS 417 [sym_kNil];
   ACTIONS 415 [sym_kNot]; ACTIONS 439 [sym_kProcedure]; ACTIONS 447 [sym_kRaise];
   ACTIONS 449 [sym_kRepeat]; ACTIONS 451 [sym_kString]; ACTIONS 453 [sym_kTry];
   ACTIONS 455 [sym_kVar]; ACTIONS 457 [sym_kWhile]; ACTIONS 459 [sym_kWith]].

(** State 344. *)
Definition ts_parse_table_344 : parse_row :=
  [STATE 2899 [sym__ppIf]; STATE 996 [sym__procAttributeNoExt];
   STATE 1005 [sym__procAttributesPp]; STATE 15262 [sym_procAttribute];
   STATE 416 [aux_sym__declProc_repeat1]; ACTIONS 2351 [anon_sym_SEMI; anon_sym_COMMA];
   ACTIONS 2353 [anon_sym_LBRACK]; ACTIONS 2356 [anon_sym_LPAREN];
   ACTIONS 2351 [aux_sym__literalString_token1; anon_sym_POUND];
   ACTIONS 2356 [aux_sym__literalInt_token1]; ACTIONS 2351 [aux_sym__literalInt_token2;
   aux_sym__literalInt_token3]; ACTIONS 2356 [aux_sym__literalFloat_token1];
   ACTIONS 2358 [aux_sym_ppUsesBlock_token1]; ACTIONS 2351 [aux_sym_ppUsesBlock_token2;
   aux_sym_ppUsesBlock_token3]; ACTIONS 2356 [sym_kAdd; sym_kSub]; ACTIONS 2351 [sym_kAt;
   sym_kTrue; sym_kFalse]; ACTIONS 3 [sym__space]; ACTIONS 5 [sym_ppDirective];
   ACTIONS 3 [sym_comment]; ACTIONS 2351 [sym_ppFragmentExpr; sym__literalStringMultiline;
   sym_identifier]; ACTIONS 2361 [sym_kDefault; sym_kNodefault]; ACTIONS 2364 [sym_kDispId];
   ACTIONS 2351 [sym_kGeneric; sym_kSpecialize; sym_kOperator]; ACTIONS 2367 [sym_kPublic];
   ACTIONS 2351 [sym_kForward]; ACTIONS 2361 [sym_kStatic; sym_kVirtual; sym_kAbstract;
   sym_kDynamic; sym_kOverride; sym_kOverload; sym_kReintroduce; sym_kStdcall; sym_kCdecl;
   sym_kCppdecl; sym_kPascal; sym_kRegister; sym_kMwpascal]; ACTIONS 2351 [sym_kExternal];
   ACTIONS 2370 [sym_kMessage]; ACTIONS 2373 [sym_kDeprecated]; ACTIONS 2361 [sym_kExperimental;
   sym_kPlatform; sym_kUnimplemented; sym_kCvar]; ACTIONS 2376 [sym_kExport];
   ACTIONS 2361 [sym_kFar; sym_kNear; sym_kSafecall; sym_kAssembler; sym_kNostackframe;
   sym_kInterrupt; sym_kNoreturn; sym_kIocheck; sym_kLocal; sym_kHardfloat; sym_kSoftfloat;
   sym_kMs_abi_default; sym_kMs_abi_cdecl; sym_kSaveregisters; sym_kSysv_abi_default;
   sym_kSysv_abi_cdecl; sym_kVectorcall; sym_kVarargs; sym_kWinapi]; ACTIONS 2379 [sym_kAlias];
   ACTIONS 2351 [sym_kAsm; sym_kBegin; sym_kCase; sym_kClass; sym_kConst; sym_kConstructor;
   sym_kDestructor; sym_kExports; sym_kFor; sym_kFunction; sym_kGoto; sym_kIf; sym_kInherited];
   ACTIONS 1016 [sym_kInline]; ACTIONS 2351 [sym_kLabel; sym_kNil; sym_kNot; sym_kProcedure;
   sym_kProperty; sym_kRaise; sym_kRepeat; sym_kResourcestring; sym_kString; sym_kThreadvar;
   sym_kTry; sym_kType; sym_kUses; sym_kVar; sym_kWhile; sym_kWith]].

(** State 345. *)
Definition ts_parse_table_345 : parse_row :=
  [STATE 6213 [sym_if]; STATE 6327 [sym_ifElse; sym_while; sym_repeat; sym_for; sym_foreach;
   sym_try; sym_case; sym_block; sym_asm; sym_with; sym_raise; sym_statement; sym_goto;
   sym__statement]; STATE 15991 [sym_ifTr; sym_ifElseTr; sym_whileTr; sym_repeatTr; sym_forTr;
   sym_foreachTr; sym_tryTr; sym_caseTr]; STATE 14251 [sym_blockTr]; STATE 15991 [sym_asmTr;
   sym_withTr; sym_raiseTr; sym_statementTr; sym_gotoTr; sym__statementTr];
   STATE 13915 [sym_assignment]; STATE 11785 [sym_varAssignDef]; STATE 13915 [sym_varDef;
   sym_constDef]; STATE 6166 [sym_label]; STATE 15991 [sym__statementsTr];
   STATE 15830 [sym_statementsTr]; STATE 8019 [sym__expr; sym_exprConditional];
   STATE 7478 [sym__ref; sym_lambda; sym_inherited; sym_exprDot; sym_exprDeref; sym_exprAs;
   sym_exprTpl; sym_exprSubscript; sym_exprCall]; STATE 8019 [sym_exprBinary; sym_exprUnary];
   STATE 7478 [sym_exprParens; sym_exprBrackets; sym__literal; sym_literalString];
   STATE 6664 [sym__literalString; sym_literalChar]; STATE 7478 [sym_literalNumber];
   STATE 7742 [sym__literalInt; sym__literalFloat]; STATE 1380 [sym__ppIf];
   STATE 6327 [sym__ppStatementBlock]; STATE 11840 [aux_sym_labeledStatement_repeat1];
   STATE 863 [aux_sym__statementsTr_repeat1]; STATE 6664 [aux_sym_literalString_repeat1];
   ACTIONS 397 [anon_sym_SEMI]; ACTIONS 399 [anon_sym_LBRACK]; ACTIONS 401 [anon_sym_LPAREN];
   ACTIONS 403 [aux_sym__literalString_token1]; ACTIONS 405 [anon_sym_POUND];
   ACTIONS 407 [aux_sym__literalInt_token1]; ACTIONS 409 [aux_sym__literalInt_token2;
   aux_sym__literalInt_token3]; ACTIONS 407 [aux_sym__literalFloat_token1];
   ACTIONS 411 [aux_sym_ppUsesBlock_token1]; ACTIONS 413 [sym_kAdd; sym_kSub];
   ACTIONS 415 [sym_kAt]; ACTIONS 417 [sym_kTrue; sym_kFalse]; ACTIONS 419 [sym_labelNumber];
   ACTIONS 3 [sym__space]; ACTIONS 5 [sym_ppDirective]; ACTIONS 3 [sym_comment];
   ACTIONS 417 [sym_ppFragmentExpr]; ACTIONS 397 [sym_ppFragmentStmt];
   ACTIONS 403 [sym__literalStringMultiline]; ACTIONS 421 [sym_identifier];
   ACTIONS 423 [sym_kSpecialize]; ACTIONS 427 [sym_kAsm]; ACTIONS 429 [sym_kBegin];
   ACTIONS 431 [sym_kCase]; ACTIONS 433 [sym_kConst]; ACTIONS 2382 [sym_kEnd];
   ACTIONS 437 [sym_kFor]; ACTIONS 439 [sym_kFunction]; ACTIONS 441 [sym_kGoto];
   ACTIONS 443 [sym_kIf]; ACTIONS 445 [sym_kInherited]; ACTIONS 417 [sym_kNil];
   ACTIONS 415 [sym_kNot]; ACTIONS 439 [sym_kProcedure]; ACTIONS 447 [sym_kRaise];
   ACTIONS 449 [sym_kRepeat]; ACTIONS 451 [sym_kString]; ACTIONS 453 [sym_kTry];
   ACTIONS 455 [sym_kVar]; ACTIONS 457 [sym_kWhile]; ACTIONS 459 [sym_kWith]].

(** State 346. *)
Definition ts_parse_table_346 : parse_row :=
  [STATE 6213 [sym_if]; STATE 6327 [sym_ifElse; sym_while; sym_repeat; sym_for; sym_foreach;
   sym_try; sym_case; sym_block; sym_asm; sym_with; sym_raise; sym_statement; sym_goto;
   sym__statement]; STATE 15845 [sym_ifTr; sym_ifElseTr; sym_whileTr; sym_repeatTr; sym_forTr;
   sym_foreachTr; sym_tryTr; sym_caseTr]; STATE 14251 [sym_blockTr]; STATE 15845 [sym_asmTr;
   sym_withTr; sym_raiseTr; sym_statementTr; sym_gotoTr; sym__statementTr];
   STATE 13915 [sym_assignment]; STATE 11785 [sym_varAssignDef]; STATE 13915 [sym_varDef;
   sym_constDef]; STATE 6166 [sym_label]; STATE 15845 [sym__statementsTr]; STATE 8019 [sym__expr;
   sym_exprConditional]; STATE 7478 [sym__ref; sym_lambda; sym_inherited; sym_exprDot;
   sym_exprDeref; sym_exprAs; sym_exprTpl; sym_exprSubscript; sym_exprCall];
   STATE 8019 [sym_exprBinary; sym_exprUnary]; STATE 7478 [sym_exprParens; sym_exprBrackets;
   sym__literal; sym_literalString]; STATE 6664 [sym__literalString; sym_literalChar];
   STATE 7478 [sym_literalNumber]; STATE 7742 [sym__literalInt; sym__literalFloat];
   STATE 1380 [sym__ppIf]; STATE 6327 [sym__ppStatementBlock];
   STATE 11840 [aux_sym_labeledStatement_repeat1]; STATE 863 [aux_sym__statementsTr_repeat1];
   STATE 6664 [aux_sym_literalString_repeat1]; ACTIONS 397 [anon_sym_SEMI];
   ACTIONS 2384 [anon_sym_COLON]; ACTIONS 399 [anon_sym_LBRACK]; ACTIONS 401 [anon_sym_LPAREN];
   ACTIONS 403 [aux_sym__literalString_token1]; ACTIONS 405 [anon_sym_POUND];
   ACTIONS 407 [aux_sym__literalInt_token1]; ACTIONS 409 [aux_sym__literalInt_token2;
   aux_sym__literalInt_token3]; ACTIONS 407 [aux_sym__literalFloat_token1];
   ACTIONS 411 [aux_sym_ppUsesBlock_token1]; ACTIONS 413 [sym_kAdd; sym_kSub];
   ACTIONS 415 [sym_kAt]; ACTIONS 417 [sym_kTrue; sym_kFalse]; ACTIONS 419 [sym_labelNumber];
   ACTIONS 3 [sym__space]; ACTIONS 5 [sym_ppDirective]; ACTIONS 3 [sym_comment];
   ACTIONS 417 [sym_ppFragmentExpr]; ACTIONS 397 [sym_ppFragmentStmt];
   ACTIONS 403 [sym__literalStringMultiline]; ACTIONS 421 [sym_identifier];
   ACTIONS 423 [sym_kSpecialize]; ACTIONS 427 [sym_kAsm]; ACTIONS 429 [sym_kBegin];
   ACTIONS 431 [sym_kCase]; ACTIONS 433 [sym_kConst]; ACTIONS 2386 [sym_kEnd];
   ACTIONS 437 [sym_kFor]; ACTIONS 439 [sym_kFunction]; ACTIONS 441 [sym_kGoto];
   ACTIONS 443 [sym_kIf]; ACTIONS 445 [sym_kInherited]; ACTIONS 417 [sym_kNil];
   ACTIONS 415 [sym_kNot]; ACTIONS 439 [sym_kProcedure]; ACTIONS 447 [sym_kRaise];
   ACTIONS 449 [sym_kRepeat]; ACTIONS 451 [sym_kString]; ACTIONS 453 [sym_kTry];
   ACTIONS 455 [sym_kVar]; ACTIONS 457 [sym_kWhile]; ACTIONS 459 [sym_kWith]].

(** State 347. *)
Definition ts_parse_table_347 : parse_row :=
  [STATE 6213 [sym_if]; STATE 6327 [sym_ifElse; sym_while; sym_repeat; sym_for; sym_foreach;
   sym_try; sym_case; sym_block; sym_asm; sym_with; sym_raise; sym_statement; sym_goto;
   sym__statement]; STATE 15864 [sym_ifTr; sym_ifElseTr; sym_whileTr; sym_repeatTr; sym_forTr;
   sym_foreachTr; sym_tryTr; sym_caseTr]; STATE 14251 [sym_blockTr]; STATE 15864 [sym_asmTr;
   sym_withTr; sym_raiseTr; sym_statementTr; sym_gotoTr; sym__statementTr];
   STATE 13915 [sym_assignment]; STATE 11785 [sym_varAssignDef]; STATE 13915 [sym_varDef;
   sym_constDef]; STATE 6166 [sym_label]; STATE 15864 [sym__statementsTr]; STATE 8019 [sym__expr;
   sym_exprConditional]; STATE 7478 [sym__ref; sym_lambda; sym_inherited; sym_exprDot;
   sym_exprDeref; sym_exprAs; sym_exprTpl; sym_exprSubscript; sym_exprCall];
   STATE 8019 [sym_exprBinary; sym_exprUnary]; STATE 7478 [sym_exprParens; sym_exprBrackets;
   sym__literal; sym_literalString]; STATE 6664 [sym__literalString; sym_literalChar];
   STATE 7478 [sym_literalNumber]; STATE 7742 [sym__literalInt; sym__literalFloat];
   STATE 1380 [sym__ppIf]; STATE 6327 [sym__ppStatementBlock];
   STATE 11840 [aux_sym_labeledStatement_repeat1]; STATE 863 [aux_sym__statementsTr_repeat1];
   STATE 6664 [aux_sym_literalString_repeat1]; ACTIONS 397 [anon_sym_SEMI];
   ACTIONS 2388 [anon_sym_COLON]; ACTIONS 399 [anon_sym_LBRACK]; ACTIONS 401 [anon_sym_LPAREN];
   ACTIONS 403 [aux_sym__literalString_token1]; ACTIONS 405 [anon_sym_POUND];
   ACTIONS 407 [aux_sym__literalInt_token1]; ACTIONS 409 [aux_sym__literalInt_token2;
   aux_sym__literalInt_token3]; ACTIONS 407 [aux_sym__literalFloat_token1];
   ACTIONS 411 [aux_sym_ppUsesBlock_token1]; ACTIONS 413 [sym_kAdd; sym_kSub];
   ACTIONS 415 [sym_kAt]; ACTIONS 417 [sym_kTrue; sym_kFalse]; ACTIONS 419 [sym_labelNumber];
   ACTIONS 3 [sym__space]; ACTIONS 5 [sym_ppDirective]; ACTIONS 3 [sym_comment];
   ACTIONS 417 [sym_ppFragmentExpr]; ACTIONS 397 [sym_ppFragmentStmt];
   ACTIONS 403 [sym__literalStringMultiline]; ACTIONS 421 [sym_identifier];
   ACTIONS 423 [sym_kSpecialize]; ACTIONS 427 [sym_kAsm]; ACTIONS 429 [sym_kBegin];
   ACTIONS 431 [sym_kCase]; ACTIONS 433 [sym_kConst]; ACTIONS 2390 [sym_kEnd];
   ACTIONS 437 [sym_kFor]; ACTIONS 439 [sym_kFunction]; ACTIONS 441 [sym_kGoto];
   ACTIONS 443 [sym_kIf]; ACTIONS 445 [sym_kInherited]; ACTIONS 417 [sym_kNil];
   ACTIONS 415 [sym_kNot]; ACTIONS 439 [sym_kProcedure]; ACTIONS 447 [sym_kRaise];
   ACTIONS 449 [sym_kRepeat]; ACTIONS 451 [sym_kString]; ACTIONS 453 [sym_kTry];
   ACTIONS 455 [sym_kVar]; ACTIONS 457 [sym_kWhile]; ACTIONS 459 [sym_kWith]].

(** State 348. *)
Definition ts_parse_table_348 : parse_row :=
  [STATE 6213 [sym_if]; STATE 6327 [sym_ifElse; sym_while; sym_repeat; sym_for; sym_foreach;
   sym_try; sym_case; sym_block; sym_asm; sym_with; sym_raise; sym_statement; sym_goto;
   sym__statement]; STATE 15870 [sym_ifTr; sym_ifElseTr; sym_whileTr; sym_repeatTr; sym_forTr;
   sym_foreachTr; sym_tryTr; sym_caseTr]; STATE 14251 [sym_blockTr]; STATE 15870 [sym_asmTr;
   sym_withTr; sym_raiseTr; sym_statementTr; sym_gotoTr; sym__statementTr];
   STATE 13915 [sym_assignment]; STATE 11785 [sym_varAssignDef]; STATE 13915 [sym_varDef;
   sym_constDef]; STATE 6166 [sym_label]; STATE 15870 [sym__statementsTr]; STATE 8019 [sym__expr;
   sym_exprConditional]; STATE 7478 [sym__ref; sym_lambda; sym_inherited; sym_exprDot;
   sym_exprDeref; sym_exprAs; sym_exprTpl; sym_exprSubscript; sym_exprCall];
   STATE 8019 [sym_exprBinary; sym_exprUnary]; STATE 7478 [sym_exprParens; sym_exprBrackets;
   sym__literal; sym_literalString]; STATE 6664 [sym__literalString; sym_literalChar];
   STATE 7478 [sym_literalNumber]; STATE 7742 [sym__literalInt; sym__literalFloat];
   STATE 1380 [sym__ppIf]; STATE 6327 [sym__ppStatementBlock];
   STATE 11840 [aux_sym_labeledStatement_repeat1]; STATE 863 [aux_sym__statementsTr_repeat1];
   STATE 6664 [aux_sym_literalString_repeat1]; ACTIONS 397 [anon_sym_SEMI];
   ACTIONS 2392 [anon_sym_COLON]; ACTIONS 399 [anon_sym_LBRACK]; ACTIONS 401 [anon_sym_LPAREN];
   ACTIONS 403 [aux_sym__literalString_token1]; ACTIONS 405 [anon_sym_POUND];
   ACTIONS 407 [aux_sym__literalInt_token1]; ACTIONS 409 [aux_sym__literalInt_token2;
   aux_sym__literalInt_token3]; ACTIONS 407 [aux_sym__literalFloat_token1];
   ACTIONS 411 [aux_sym_ppUsesBlock_token1]; ACTIONS 413 [sym_kAdd; sym_kSub];
   ACTIONS 415 [sym_kAt]; ACTIONS 417 [sym_kTrue; sym_kFalse]; ACTIONS 419 [sym_labelNumber];
   ACTIONS 3 [sym__space]; ACTIONS 5 [sym_ppDirective]; ACTIONS 3 [sym_comment];
   ACTIONS 417 [sym_ppFragmentExpr]; ACTIONS 397 [sym_ppFragmentStmt];
   ACTIONS 403 [sym__literalStringMultiline]; ACTIONS 421 [sym_identifier];
   ACTIONS 423 [sym_kSpecialize]; ACTIONS 427 [sym_kAsm]; ACTIONS 429 [sym_kBegin];
   ACTIONS 431 [sym_kCase]; ACTIONS 433 [sym_kConst]; ACTIONS 2394 [sym_kEnd];
   ACTIONS 437 [sym_kFor]; ACTIONS 439 [sym_kFunction]; ACTIONS 441 [sym_kGoto];
   ACTIONS 443 [sym_kIf]; ACTIONS 445 [sym_kInherited]; ACTIONS 417 [sym_kNil];
   ACTIONS 415 [sym_kNot]; ACTIONS 439 [sym_kProcedure]; ACTIONS 447 [sym_kRaise];
   ACTIONS 449 [sym_kRepeat]; ACTIONS 451 [sym_kString]; ACTIONS 453 [sym_kTry];
   ACTIONS 455 [sym_kVar]; ACTIONS 457 [sym_kWhile]; ACTIONS 459 [sym_kWith]].

(** State 349. *)
Definition ts_parse_table_349 : parse_row :=
  [STATE 2899 [sym__ppIf]; STATE 996 [sym__procAttributeNoExt];
   STATE 1005 [sym__procAttributesPp]; STATE 15262 [sym_procAttribute];
   STATE 183 [aux_sym__declProc_repeat1]; ACTIONS 2396 [anon_sym_SEMI; anon_sym_COMMA];
   ACTIONS 2398 [anon_sym_LBRACK]; ACTIONS 2401 [anon_sym_LPAREN];
   ACTIONS 2396 [aux_sym__literalString_token1; anon_sym_POUND];
   ACTIONS 2401 [aux_sym__literalInt_token1]; ACTIONS 2396 [aux_sym__literalInt_token2;
   aux_sym__literalInt_token3]; ACTIONS 2401 [aux_sym__literalFloat_token1];
   ACTIONS 2403 [aux_sym_ppUsesBlock_token1]; ACTIONS 2396 [aux_sym_ppUsesBlock_token2;
   aux_sym_ppUsesBlock_token3]; ACTIONS 2401 [sym_kAdd; sym_kSub]; ACTIONS 2396 [sym_kAt;
   sym_kTrue; sym_kFalse]; ACTIONS 3 [sym__space]; ACTIONS 5 [sym_ppDirective];
   ACTIONS 3 [sym_comment]; ACTIONS 2396 [sym_ppFragmentExpr; sym__literalStringMultiline;
   sym_identifier]; ACTIONS 2406 [sym_kDefault; sym_kNodefault]; ACTIONS 2409 [sym_kDispId];
   ACTIONS 2396 [sym_kGeneric; sym_kSpecialize; sym_kOperator]; ACTIONS 2412 [sym_kPublic];
   ACTIONS 2396 [sym_kForward]; ACTIONS 2406 [sym_kStatic; sym_kVirtual; sym_kAbstract;
   sym_kDynamic; sym_kOverride; sym_kOverload; sym_kReintroduce; sym_kStdcall; sym_kCdecl;
   sym_kCppdecl; sym_kPascal; sym_kRegister; sym_kMwpascal]; ACTIONS 2396 [sym_kExternal];
   ACTIONS 2415 [sym_kMessage]; ACTIONS 2418 [sym_kDeprecated]; ACTIONS 2406 [sym_kExperimental;
   sym_kPlatform; sym_kUnimplemented; sym_kCvar]; ACTIONS 2421 [sym_kExport];
   ACTIONS 2406 [sym_kFar; sym_kNear; sym_kSafecall; sym_kAssembler; sym_kNostackframe;
   sym_kInterrupt; sym_kNoreturn; sym_kIocheck; sym_kLocal; sym_kHardfloat; sym_kSoftfloat;
   sym_kMs_abi_default; sym_kMs_abi_cdecl; sym_kSaveregisters; sym_kSysv_abi_default;
   sym_kSysv_abi_cdecl; sym_kVectorcall; sym_kVarargs; sym_kWinapi]; ACTIONS 2424 [sym_kAlias];
   ACTIONS 2396 [sym_kAsm; sym_kBegin; sym_kCase; sym_kClass; sym_kConst; sym_kConstructor;
   sym_kDestructor; sym_kExports; sym_kFor; sym_kFunction; sym_kGoto; sym_kIf; sym_kInherited];
   ACTIONS 1016 [sym_kInline]; ACTIONS 2396 [sym_kLabel; sym_kNil; sym_kNot; sym_kProcedure;
   sym_kProperty; sym_kRaise; sym_kRepeat; sym_kResourcestring; sym_kString; sym_kThreadvar;
   sym_kTry; sym_kType; sym_kUses; sym_kVar; sym_kWhile; sym_kWith]].

(** State 350. *)
Definition ts_parse_table_350 : parse_row :=
  [STATE 6213 [sym_if]; STATE 6327 [sym_ifElse; sym_while; sym_repeat; sym_for; sym_foreach;
   sym_try; sym_case; sym_block; sym_asm; sym_with; sym_raise; sym_statement; sym_goto;
   sym__statement]; STATE 15991 [sym_ifTr; sym_ifElseTr; sym_whileTr; sym_repeatTr; sym_forTr;
   sym_foreachTr; sym_tryTr; sym_caseTr]; STATE 14251 [sym_blockTr]; STATE 15991 [sym_asmTr;
   sym_withTr; sym_raiseTr; sym_statementTr; sym_gotoTr; sym__statementTr];
   STATE 13915 [sym_assignment]; STATE 11785 [sym_varAssignDef]; STATE 13915 [sym_varDef;
   sym_constDef]; STATE 6166 [sym_label]; STATE 15991 [sym__statementsTr];
   STATE 15972 [sym_statementsTr]; STATE 8019 [sym__expr; sym_exprConditional];
   STATE 7478 [sym__ref; sym_lambda; sym_inherited; sym_exprDot; sym_exprDeref; sym_exprAs;
   sym_exprTpl; sym_exprSubscript; sym_exprCall]; STATE 8019 [sym_exprBinary; sym_exprUnary];
   STATE 7478 [sym_exprParens; sym_exprBrackets; sym__literal; sym_literalString];
   STATE 6664 [sym__literalString; sym_literalChar]; STATE 7478 [sym_literalNumber];
   STATE 7742 [sym__literalInt; sym__literalFloat]; STATE 1380 [sym__ppIf];
   STATE 6327 [sym__ppStatementBlock]; STATE 11840 [aux_sym_labeledStatement_repeat1];
   STATE 863 [aux_sym__statementsTr_repeat1]; STATE 6664 [aux_sym_literalString_repeat1];
   ACTIONS 397 [anon_sym_SEMI]; ACTIONS 399 [anon_sym_LBRACK]; ACTIONS 401 [anon_sym_LPAREN];
   ACTIONS 403 [aux_sym__literalString_token1]; ACTIONS 405 [anon_sym_POUND];
   ACTIONS 407 [aux_sym__literalInt_token1]; ACTIONS 409 [aux_sym__literalInt_token2;
   aux_sym__literalInt_token3]; ACTIONS 407 [aux_sym__literalFloat_token1];
   ACTIONS 411 [aux_sym_ppUsesBlock_token1]; ACTIONS 413 [sym_kAdd; sym_kSub];
   ACTIONS 415 [sym_kAt]; ACTIONS 417 [sym_kTrue; sym_kFalse]; ACTIONS 419 [sym_labelNumber];
   ACTIONS 3 [sym__space]; ACTIONS 5 [sym_ppDirective]; ACTIONS 3 [sym_comment];
   ACTIONS 417 [sym_ppFragmentExpr]; ACTIONS 397 [sym_ppFragmentStmt];
   ACTIONS 403 [sym__literalStringMultiline]; ACTIONS 421 [sym_identifier];
   ACTIONS 423 [sym_kSpecialize]; ACTIONS 427 [sym_kAsm]; ACTIONS 429 [sym_kBegin];
   ACTIONS 431 [sym_kCase]; ACTIONS 433 [sym_kConst]; ACTIONS 2427 [sym_kEnd];
   ACTIONS 437 [sym_kFor]; ACTIONS 439 [sym_kFunction]; ACTIONS 441 [sym_kGoto];
   ACTIONS 443 [sym_kIf]; ACTIONS 445 [sym_kInherited]; ACTIONS 417 [sym_kNil];
   ACTIONS 415 [sym_kNot]; ACTIONS 439 [sym_kProcedure]; ACTIONS 447 [sym_kRaise];
   ACTIONS 449 [sym_kRepeat]; ACTIONS 451 [sym_kString]; ACTIONS 453 [sym_kTry];
   ACTIONS 455 [sym_kVar]; ACTIONS 457 [sym_kWhile]; ACTIONS 459 [sym_kWith]].

(** State 351. *)
Definition ts_parse_table_351 : parse_row :=
  [STATE 6213 [sym_if]; STATE 6327 [sym_ifElse; sym_while; sym_repeat; sym_for; sym_foreach;
   sym_try; sym_case; sym_block; sym_asm; sym_with; sym_raise; sym_statement; sym_goto;
   sym__statement]; STATE 15991 [sym_ifTr; sym_ifElseTr; sym_whileTr; sym_repeatTr; sym_forTr;
   sym_foreachTr; sym_tryTr; sym_caseTr]; STATE 14251 [sym_blockTr]; STATE 15991 [sym_asmTr;
   sym_withTr; sym_raiseTr; sym_statementTr; sym_gotoTr; sym__statementTr];
   STATE 13915 [sym_assignment]; STATE 11785 [sym_varAssignDef]; STATE 13915 [sym_varDef;
   sym_constDef]; STATE 6166 [sym_label]; STATE 15991 [sym__statementsTr];
   STATE 15190 [sym_statementsTr]; STATE 8019 [sym__expr; sym_exprConditional];
   STATE 7478 [sym__ref; sym_lambda; sym_inherited; sym_exprDot; sym_exprDeref; sym_exprAs;
   sym_exprTpl; sym_exprSubscript; sym_exprCall]; STATE 8019 [sym_exprBinary; sym_exprUnary];
   STATE 7478 [sym_exprParens; sym_exprBrackets; sym__literal; sym_literalString];
   STATE 6664 [sym__literalString; sym_literalChar]; STATE 7478 [sym_literalNumber];
   STATE 7742 [sym__literalInt; sym__literalFloat]; STATE 1380 [sym__ppIf];
   STATE 6327 [sym__ppStatementBlock]; STATE 11840 [aux_sym_labeledStatement_repeat1];
   STATE 863 [aux_sym__statementsTr_repeat1]; STATE 6664 [aux_sym_literalString_repeat1];
   ACTIONS 397 [anon_sym_SEMI]; ACTIONS 399 [anon_sym_LBRACK]; ACTIONS 401 [anon_sym_LPAREN];
   ACTIONS 403 [aux_sym__literalString_token1]; ACTIONS 405 [anon_sym_POUND];
   ACTIONS 407 [aux_sym__literalInt_token1]; ACTIONS 409 [aux_sym__literalInt_token2;
   aux_sym__literalInt_token3]; ACTIONS 407 [aux_sym__literalFloat_token1];
   ACTIONS 411 [aux_sym_ppUsesBlock_token1]; ACTIONS 413 [sym_kAdd; sym_kSub];
   ACTIONS 415 [sym_kAt]; ACTIONS 417 [sym_kTrue; sym_kFalse]; ACTIONS 419 [sym_labelNumber];
   ACTIONS 3 [sym__space]; ACTIONS 5 [sym_ppDirective]; ACTIONS 3 [sym_comment];
   ACTIONS 417 [sym_ppFragmentExpr]; ACTIONS 397 [sym_ppFragmentStmt];
   ACTIONS 403 [sym__literalStringMultiline]; ACTIONS 421 [sym_identifier];
   ACTIONS 423 [sym_kSpecialize]; ACTIONS 427 [sym_kAsm]; ACTIONS 429 [sym_kBegin];
   ACTIONS 431 [sym_kCase]; ACTIONS 433 [sym_kConst]; ACTIONS 2429 [sym_kEnd];
   ACTIONS 437 [sym_kFor]; ACTIONS 439 [sym_kFunction]; ACTIONS 441 [sym_kGoto];
   ACTIONS 443 [sym_kIf]; ACTIONS 445 [sym_kInherited]; ACTIONS 417 [sym_kNil];
   ACTIONS 415 [sym_kNot]; ACTIONS 439 [sym_kProcedure]; ACTIONS 447 [sym_kRaise];
   ACTIONS 449 [sym_kRepeat]; ACTIONS 451 [sym_kString]; ACTIONS 453 [sym_kTry];
   ACTIONS 455 [sym_kVar]; ACTIONS 457 [sym_kWhile]; ACTIONS 459 [sym_kWith]].

(** State 352. *)
Definition ts_parse_table_352 : parse_row :=
  [STATE 6213 [sym_if]; STATE 6327 [sym_ifElse; sym_while; sym_repeat; sym_for; sym_foreach;
   sym_try; sym_case; sym_block; sym_asm; sym_with; sym_raise; sym_statement; sym_goto;
   sym__statement]; STATE 14126 [sym_ifTr; sym_ifElseTr; sym_whileTr; sym_repeatTr; sym_forTr;
   sym_foreachTr; sym_tryTr; sym_caseTr]; STATE 14251 [sym_blockTr]; STATE 14126 [sym_asmTr;
   sym_withTr; sym_raiseTr; sym_statementTr; sym_gotoTr; sym__statementTr];
   STATE 13915 [sym_assignment]; STATE 11785 [sym_varAssignDef]; STATE 13915 [sym_varDef;
   sym_constDef]; STATE 6166 [sym_label]; STATE 14126 [sym__statementsTr]; STATE 8019 [sym__expr;
   sym_exprConditional]; STATE 7478 [sym__ref; sym_lambda; sym_inherited; sym_exprDot;
   sym_exprDeref; sym_exprAs; sym_exprTpl; sym_exprSubscript; sym_exprCall];
   STATE 8019 [sym_exprBinary; sym_exprUnary]; STATE 7478 [sym_exprParens; sym_exprBrackets;
   sym__literal; sym_literalString]; STATE 6664 [sym__literalString; sym_literalChar];
   STATE 7478 [sym_literalNumber]; STATE 7742 [sym__literalInt; sym__literalFloat];
   STATE 1380 [sym__ppIf]; STATE 6327 [sym__ppStatementBlock];
   STATE 11840 [aux_sym_labeledStatement_repeat1]; STATE 863 [aux_sym__statementsTr_repeat1];
   STATE 6664 [aux_sym_literalString_repeat1]; ACTIONS 397 [anon_sym_SEMI];
   ACTIONS 2431 [anon_sym_COLON]; ACTIONS 399 [anon_sym_LBRACK]; ACTIONS 401 [anon_sym_LPAREN];
   ACTIONS 403 [aux_sym__literalString_token1]; ACTIONS 405 [anon_sym_POUND];
   ACTIONS 407 [aux_sym__literalInt_token1]; ACTIONS 409 [aux_sym__literalInt_token2;
   aux_sym__literalInt_token3]; ACTIONS 407 [aux_sym__literalFloat_token1];
   ACTIONS 411 [aux_sym_ppUsesBlock_token1]; ACTIONS 413 [sym_kAdd; sym_kSub];
   ACTIONS 415 [sym_kAt]; ACTIONS 417 [sym_kTrue; sym_kFalse]; ACTIONS 419 [sym_labelNumber];
   ACTIONS 3 [sym__space]; ACTIONS 5 [sym_ppDirective]; ACTIONS 3 [sym_comment];
   ACTIONS 417 [sym_ppFragmentExpr]; ACTIONS 397 [sym_ppFragmentStmt];
   ACTIONS 403 [sym__literalStringMultiline]; ACTIONS 421 [sym_identifier];
   ACTIONS 423 [sym_kSpecialize]; ACTIONS 427 [sym_kAsm]; ACTIONS 429 [sym_kBegin];
   ACTIONS 431 [sym_kCase]; ACTIONS 433 [sym_kConst]; ACTIONS 2433 [sym_kEnd];
   ACTIONS 437 [sym_kFor]; ACTIONS 439 [sym_kFunction]; ACTIONS 441 [sym_kGoto];
   ACTIONS 443 [sym_kIf]; ACTIONS 445 [sym_kInherited]; ACTIONS 417 [sym_kNil];
   ACTIONS 415 [sym_kNot]; ACTIONS 439 [sym_kProcedure]; ACTIONS 447 [sym_kRaise];
   ACTIONS 449 [sym_kRepeat]; ACTIONS 451 [sym_kString]; ACTIONS 453 [sym_kTry];
   ACTIONS 455 [sym_kVar]; ACTIONS 457 [sym_kWhile]; ACTIONS 459 [sym_kWith]].

(** State 353. *)
Definition ts_parse_table_353 : parse_row :=
  [STATE 6213 [sym_if]; STATE 6327 [sym_ifElse; sym_while; sym_repeat; sym_for; sym_foreach;
   sym_try; sym_case; sym_block; sym_asm; sym_with; sym_raise; sym_statement; sym_goto;
   sym__statement]; STATE 14130 [sym_ifTr; sym_ifElseTr; sym_whileTr; sym_repeatTr; sym_forTr;
   sym_foreachTr; sym_tryTr; sym_caseTr]; STATE 14251 [sym_blockTr]; STATE 14130 [sym_asmTr;
   sym_withTr; sym_raiseTr; sym_statementTr; sym_gotoTr; sym__statementTr];
   STATE 13915 [sym_assignment]; STATE 11785 [sym_varAssignDef]; STATE 13915 [sym_varDef;
   sym_constDef]; STATE 6166 [sym_label]; STATE 14130 [sym__statementsTr]; STATE 8019 [sym__expr;
   sym_exprConditional]; STATE 7478 [sym__ref; sym_lambda; sym_inherited; sym_exprDot;
   sym_exprDeref; sym_exprAs; sym_exprTpl; sym_exprSubscript; sym_exprCall];
   STATE 8019 [sym_exprBinary; sym_exprUnary]; STATE 7478 [sym_exprParens; sym_exprBrackets;
   sym__literal; sym_literalString]; STATE 6664 [sym__literalString; sym_literalChar];
   STATE 7478 [sym_literalNumber]; STATE 7742 [sym__literalInt; sym__literalFloat];
   STATE 1380 [sym__ppIf]; STATE 6327 [sym__ppStatementBlock];
   STATE 11840 [aux_sym_labeledStatement_repeat1]; STATE 863 [aux_sym__statementsTr_repeat1];
   STATE 6664 [aux_sym_literalString_repeat1]; ACTIONS 397 [anon_sym_SEMI];
   ACTIONS 2435 [anon_sym_COLON]; ACTIONS 399 [anon_sym_LBRACK]; ACTIONS 401 [anon_sym_LPAREN];
   ACTIONS 403 [aux_sym__literalString_token1]; ACTIONS 405 [anon_sym_POUND];
   ACTIONS 407 [aux_sym__literalInt_token1]; ACTIONS 409 [aux_sym__literalInt_token2;
   aux_sym__literalInt_token3]; ACTIONS 407 [aux_sym__literalFloat_token1];
   ACTIONS 411 [aux_sym_ppUsesBlock_token1]; ACTIONS 413 [sym_kAdd; sym_kSub];
   ACTIONS 415 [sym_kAt]; ACTIONS 417 [sym_kTrue; sym_kFalse]; ACTIONS 419 [sym_labelNumber];
   ACTIONS 3 [sym__space]; ACTIONS 5 [sym_ppDirective]; ACTIONS 3 [sym_comment];
   ACTIONS 417 [sym_ppFragmentExpr]; ACTIONS 397 [sym_ppFragmentStmt];
   ACTIONS 403 [sym__literalStringMultiline]; ACTIONS 421 [sym_identifier];
   ACTIONS 423 [sym_kSpecialize]; ACTIONS 427 [sym_kAsm]; ACTIONS 429 [sym_kBegin];
   ACTIONS 431 [sym_kCase]; ACTIONS 433 [sym_kConst]; ACTIONS 2437 [sym_kEnd];
   ACTIONS 437 [sym_kFor]; ACTIONS 439 [sym_kFunction]; ACTIONS 441 [sym_kGoto];
   ACTIONS 443 [sym_kIf]; ACTIONS 445 [sym_kInherited]; ACTIONS 417 [sym_kNil];
   ACTIONS 415 [sym_kNot]; ACTIONS 439 [sym_kProcedure]; ACTIONS 447 [sym_kRaise];
   ACTIONS 449 [sym_kRepeat]; ACTIONS 451 [sym_kString]; ACTIONS 453 [sym_kTry];
   ACTIONS 455 [sym_kVar]; ACTIONS 457 [sym_kWhile]; ACTIONS 459 [sym_kWith]].

(** State 354. *)
Definition ts_parse_table_354 : parse_row :=
  [STATE 6213 [sym_if]; STATE 6327 [sym_ifElse; sym_while; sym_repeat; sym_for; sym_foreach;
   sym_try; sym_case; sym_block; sym_asm; sym_with; sym_raise; sym_statement; sym_goto;
   sym__statement]; STATE 14140 [sym_ifTr; sym_ifElseTr; sym_whileTr; sym_repeatTr; sym_forTr;
   sym_foreachTr; sym_tryTr; sym_caseTr]; STATE 14251 [sym_blockTr]; STATE 14140 [sym_asmTr;
   sym_withTr; sym_raiseTr; sym_statementTr; sym_gotoTr; sym__statementTr];
   STATE 13915 [sym_assignment]; STATE 11785 [sym_varAssignDef]; STATE 13915 [sym_varDef;
   sym_constDef]; STATE 6166 [sym_label]; STATE 14140 [sym__statementsTr]; STATE 8019 [sym__expr;
   sym_exprConditional]; STATE 7478 [sym__ref; sym_lambda; sym_inherited; sym_exprDot;
   sym_exprDeref; sym_exprAs; sym_exprTpl; sym_exprSubscript; sym_exprCall];
   STATE 8019 [sym_exprBinary; sym_exprUnary]; STATE 7478 [sym_exprParens; sym_exprBrackets;
   sym__literal; sym_literalString]; STATE 6664 [sym__literalString; sym_literalChar];
   STATE 7478 [sym_literalNumber]; STATE 7742 [sym__literalInt; sym__literalFloat];
   STATE 1380 [sym__ppIf]; STATE 6327 [sym__ppStatementBlock];
   STATE 11840 [aux_sym_labeledStatement_repeat1]; STATE 863 [aux_sym__statementsTr_repeat1];
   STATE 6664 [aux_sym_literalString_repeat1]; ACTIONS 397 [anon_sym_SEMI];
   ACTIONS 2439 [anon_sym_COLON]; ACTIONS 399 [anon_sym_LBRACK]; ACTIONS 401 [anon_sym_LPAREN];
   ACTIONS 403 [aux_sym__literalString_token1]; ACTIONS 405 [anon_sym_POUND];
   ACTIONS 407 [aux_sym__literalInt_token1]; ACTIONS 409 [aux_sym__literalInt_token2;
   aux_sym__literalInt_token3]; ACTIONS 407 [aux_sym__literalFloat_token1];
   ACTIONS 411 [aux_sym_ppUsesBlock_token1]; ACTIONS 413 [sym_kAdd; sym_kSub];
   ACTIONS 415 [sym_kAt]; ACTIONS 417 [sym_kTrue; sym_kFalse]; ACTIONS 419 [sym_labelNumber];
   ACTIONS 3 [sym__space]; ACTIONS 5 [sym_ppDirective]; ACTIONS 3 [sym_comment];
   ACTIONS 417 [sym_ppFragmentExpr]; ACTIONS 397 [sym_ppFragmentStmt];
   ACTIONS 403 [sym__literalStringMultiline]; ACTIONS 421 [sym_identifier];
   ACTIONS 423 [sym_kSpecialize]; ACTIONS 427 [sym_kAsm]; ACTIONS 429 [sym_kBegin];
   ACTIONS 431 [sym_kCase]; ACTIONS 433 [sym_kConst]; ACTIONS 2441 [sym_kEnd];
   ACTIONS 437 [sym_kFor]; ACTIONS 439 [sym_kFunction]; ACTIONS 441 [sym_kGoto];
   ACTIONS 443 [sym_kIf]; ACTIONS 445 [sym_kInherited]; ACTIONS 417 [sym_kNil];
   ACTIONS 415 [sym_kNot]; ACTIONS 439 [sym_kProcedure]; ACTIONS 447 [sym_kRaise];
   ACTIONS 449 [sym_kRepeat]; ACTIONS 451 [sym_kString]; ACTIONS 453 [sym_kTry];
   ACTIONS 455 [sym_kVar]; ACTIONS 457 [sym_kWhile]; ACTIONS 459 [sym_kWith]].

(** State 355. *)
Definition ts_parse_table_355 : parse_row :=
  [STATE 6213 [sym_if]; STATE 6327 [sym_ifElse; sym_while; sym_repeat; sym_for; sym_foreach;
   sym_try; sym_case; sym_block; sym_asm; sym_with; sym_raise; sym_statement; sym_goto;
   sym__statement]; STATE 15991 [sym_ifTr; sym_ifElseTr; sym_whileTr; sym_repeatTr; sym_forTr;
   sym_foreachTr; sym_tryTr; sym_caseTr]; STATE 14251 [sym_blockTr]; STATE 15991 [sym_asmTr;
   sym_withTr; sym_raiseTr; sym_statementTr; sym_gotoTr; sym__statementTr];
   STATE 13915 [sym_assignment]; STATE 11785 [sym_varAssignDef]; STATE 13915 [sym_varDef;
   sym_constDef]; STATE 6166 [sym_label]; STATE 15991 [sym__statementsTr];
   STATE 14200 [sym_statementsTr]; STATE 8019 [sym__expr; sym_exprConditional];
   STATE 7478 [sym__ref; sym_lambda; sym_inherited; sym_exprDot; sym_exprDeref; sym_exprAs;
   sym_exprTpl; sym_exprSubscript; sym_exprCall]; STATE 8019 [sym_exprBinary; sym_exprUnary];
   STATE 7478 [sym_exprParens; sym_exprBrackets; sym__literal; sym_literalString];
   STATE 6664 [sym__literalString; sym_literalChar]; STATE 7478 [sym_literalNumber];
   STATE 7742 [sym__literalInt; sym__literalFloat]; STATE 1380 [sym__ppIf];
   STATE 6327 [sym__ppStatementBlock]; STATE 11840 [aux_sym_labeledStatement_repeat1];
   STATE 863 [aux_sym__statementsTr_repeat1]; STATE 6664 [aux_sym_literalString_repeat1];
   ACTIONS 397 [anon_sym_SEMI]; ACTIONS 399 [anon_sym_LBRACK]; ACTIONS 401 [anon_sym_LPAREN];
   ACTIONS 403 [aux_sym__literalString_token1]; ACTIONS 405 [anon_sym_POUND];
   ACTIONS 407 [aux_sym__literalInt_token1]; ACTIONS 409 [aux_sym__literalInt_token2;
   aux_sym__literalInt_token3]; ACTIONS 407 [aux_sym__literalFloat_token1];
   ACTIONS 411 [aux_sym_ppUsesBlock_token1]; ACTIONS 413 [sym_kAdd; sym_kSub];
   ACTIONS 415 [sym_kAt]; ACTIONS 417 [sym_kTrue; sym_kFalse]; ACTIONS 419 [sym_labelNumber];
   ACTIONS 3 [sym__space]; ACTIONS 5 [sym_ppDirective]; ACTIONS 3 [sym_comment];
   ACTIONS 417 [sym_ppFragmentExpr]; ACTIONS 397 [sym_ppFragmentStmt];
   ACTIONS 403 [sym__literalStringMultiline]; ACTIONS 421 [sym_identifier];
   ACTIONS 423 [sym_kSpecialize]; ACTIONS 427 [sym_kAsm]; ACTIONS 429 [sym_kBegin];
   ACTIONS 431 [sym_kCase]; ACTIONS 433 [sym_kConst]; ACTIONS 2443 [sym_kEnd];
   ACTIONS 437 [sym_kFor]; ACTIONS 439 [sym_kFunction]; ACTIONS 441 [sym_kGoto];
   ACTIONS 443 [sym_kIf]; ACTIONS 445 [sym_kInherited]; ACTIONS 417 [sym_kNil];
   ACTIONS 415 [sym_kNot]; ACTIONS 439 [sym_kProcedure]; ACTIONS 447 [sym_kRaise];
   ACTIONS 449 [sym_kRepeat]; ACTIONS 451 [sym_kString]; ACTIONS 453 [sym_kTry];
   ACTIONS 455 [sym_kVar]; ACTIONS 457 [sym_kWhile]; ACTIONS 459 [sym_kWith]].

(** State 356. *)
Definition ts_parse_table_356 : parse_row :=
  [STATE 6213 [sym_if]; STATE 6327 [sym_ifElse; sym_while; sym_repeat; sym_for; sym_foreach;
   sym_try; sym_case; sym_block; sym_asm; sym_with; sym_raise; sym_statement; sym_goto;
   sym__statement]; STATE 15991 [sym_ifTr; sym_ifElseTr; sym_whileTr; sym_repeatTr; sym_forTr;
   sym_foreachTr; sym_tryTr; sym_caseTr]; STATE 14251 [sym_blockTr]; STATE 15991 [sym_asmTr;
   sym_withTr; sym_raiseTr; sym_statementTr; sym_gotoTr; sym__statementTr];
   STATE 13915 [sym_assignment]; STATE 11785 [sym_varAssignDef]; STATE 13915 [sym_varDef;
   sym_constDef]; STATE 6166 [sym_label]; STATE 15991 [sym__statementsTr];
   STATE 14231 [sym_statementsTr]; STATE 8019 [sym__expr; sym_exprConditional];
   STATE 7478 [sym__ref; sym_lambda; sym_inherited; sym_exprDot; sym_exprDeref; sym_exprAs;
   sym_exprTpl; sym_exprSubscript; sym_exprCall]; STATE 8019 [sym_exprBinary; sym_exprUnary];
   STATE 7478 [sym_exprParens; sym_exprBrackets; sym__literal; sym_literalString];
   STATE 6664 [sym__literalString; sym_literalChar]; STATE 7478 [sym_literalNumber];
   STATE 7742 [sym__literalInt; sym__literalFloat]; STATE 1380 [sym__ppIf];
   STATE 6327 [sym__ppStatementBlock]; STATE 11840 [aux_sym_labeledStatement_repeat1];
   STATE 863 [aux_sym__statementsTr_repeat1]; STATE 6664 [aux_sym_literalString_repeat1];
   ACTIONS 397 [anon_sym_SEMI]; ACTIONS 399 [anon_sym_LBRACK]; ACTIONS 401 [anon_sym_LPAREN];
   ACTIONS 403 [aux_sym__literalString_token1]; ACTIONS 405 [anon_sym_POUND];
   ACTIONS 407 [aux_sym__literalInt_token1]; ACTIONS 409 [aux_sym__literalInt_token2;
   aux_sym__literalInt_token3]; ACTIONS 407 [aux_sym__literalFloat_token1];
   ACTIONS 411 [aux_sym_ppUsesBlock_token1]; ACTIONS 413 [sym_kAdd; sym_kSub];
   ACTIONS 415 [sym_kAt]; ACTIONS 417 [sym_kTrue; sym_kFalse]; ACTIONS 419 [sym_labelNumber];
   ACTIONS 3 [sym__space]; ACTIONS 5 [sym_ppDirective]; ACTIONS 3 [sym_comment];
   ACTIONS 417 [sym_ppFragmentExpr]; ACTIONS 397 [sym_ppFragmentStmt];
   ACTIONS 403 [sym__literalStringMultiline]; ACTIONS 421 [sym_identifier];
   ACTIONS 423 [sym_kSpecialize]; ACTIONS 427 [sym_kAsm]; ACTIONS 429 [sym_kBegin];
   ACTIONS 431 [sym_kCase]; ACTIONS 433 [sym_kConst]; ACTIONS 2445 [sym_kEnd];
   ACTIONS 437 [sym_kFor]; ACTIONS 439 [sym_kFunction]; ACTIONS 441 [sym_kGoto];
   ACTIONS 443 [sym_kIf]; ACTIONS 445 [sym_kInherited]; ACTIONS 417 [sym_kNil];
   ACTIONS 415 [sym_kNot]; ACTIONS 439 [sym_kProcedure]; ACTIONS 447 [sym_kRaise];
   ACTIONS 449 [sym_kRepeat]; ACTIONS 451 [sym_kString]; ACTIONS 453 [sym_kTry];
   ACTIONS 455 [sym_kVar]; ACTIONS 457 [sym_kWhile]; ACTIONS 459 [sym_kWith]].

(** State 357. *)
Definition ts_parse_table_357 : parse_row :=
  [STATE 6213 [sym_if]; STATE 6327 [sym_ifElse; sym_while; sym_repeat; sym_for; sym_foreach;
   sym_try; sym_case; sym_block; sym_asm; sym_with; sym_raise; sym_statement; sym_goto;
   sym__statement]; STATE 14243 [sym_ifTr; sym_ifElseTr; sym_whileTr; sym_repeatTr; sym_forTr;
   sym_foreachTr; sym_tryTr; sym_caseTr]; STATE 14251 [sym_blockTr]; STATE 14243 [sym_asmTr;
   sym_withTr; sym_raiseTr; sym_statementTr; sym_gotoTr; sym__statementTr];
   STATE 13915 [sym_assignment]; STATE 11785 [sym_varAssignDef]; STATE 13915 [sym_varDef;
   sym_constDef]; STATE 6166 [sym_label]; STATE 14243 [sym__statementsTr]; STATE 8019 [sym__expr;
   sym_exprConditional]; STATE 7478 [sym__ref; sym_lambda; sym_inherited; sym_exprDot;
   sym_exprDeref; sym_exprAs; sym_exprTpl; sym_exprSubscript; sym_exprCall];
   STATE 8019 [sym_exprBinary; sym_exprUnary]; STATE 7478 [sym_exprParens; sym_exprBrackets;
   sym__literal; sym_literalString]; STATE 6664 [sym__literalString; sym_literalChar];
   STATE 7478 [sym_literalNumber]; STATE 7742 [sym__literalInt; sym__literalFloat];
   STATE 1380 [sym__ppIf]; STATE 6327 [sym__ppStatementBlock];
   STATE 11840 [aux_sym_labeledStatement_repeat1]; STATE 863 [aux_sym__statementsTr_repeat1];
   STATE 6664 [aux_sym_literalString_repeat1]; ACTIONS 397 [anon_sym_SEMI];
   ACTIONS 2447 [anon_sym_COLON]; ACTIONS 399 [anon_sym_LBRACK]; ACTIONS 401 [anon_sym_LPAREN];
   ACTIONS 403 [aux_sym__literalString_token1]; ACTIONS 405 [anon_sym_POUND];
   ACTIONS 407 [aux_sym__literalInt_token1]; ACTIONS 409 [aux_sym__literalInt_token2;
   aux_sym__literalInt_token3]; ACTIONS 407 [aux_sym__literalFloat_token1];
   ACTIONS 411 [aux_sym_ppUsesBlock_token1]; ACTIONS 413 [sym_kAdd; sym_kSub];
   ACTIONS 415 [sym_kAt]; ACTIONS 417 [sym_kTrue; sym_kFalse]; ACTIONS 419 [sym_labelNumber];
   ACTIONS 3 [sym__space]; ACTIONS 5 [sym_ppDirective]; ACTIONS 3 [sym_comment];
   ACTIONS 417 [sym_ppFragmentExpr]; ACTIONS 397 [sym_ppFragmentStmt];
   ACTIONS 403 [sym__literalStringMultiline]; ACTIONS 421 [sym_identifier];
   ACTIONS 423 [sym_kSpecialize]; ACTIONS 427 [sym_kAsm]; ACTIONS 429 [sym_kBegin];
   ACTIONS 431 [sym_kCase]; ACTIONS 433 [sym_kConst]; ACTIONS 2449 [sym_kEnd];
   ACTIONS 437 [sym_kFor]; ACTIONS 439 [sym_kFunction]; ACTIONS 441 [sym_kGoto];
   ACTIONS 443 [sym_kIf]; ACTIONS 445 [sym_kInherited]; ACTIONS 417 [sym_kNil];
   ACTIONS 415 [sym_kNot]; ACTIONS 439 [sym_kProcedure]; ACTIONS 447 [sym_kRaise];
   ACTIONS 449 [sym_kRepeat]; ACTIONS 451 [sym_kString]; ACTIONS 453 [sym_kTry];
   ACTIONS 455 [sym_kVar]; ACTIONS 457 [sym_kWhile]; ACTIONS 459 [sym_kWith]].

(** State 358. *)
Definition ts_parse_table_358 : parse_row :=
  [STATE 6213 [sym_if]; STATE 6327 [sym_ifElse; sym_while; sym_repeat; sym_for; sym_foreach;
   sym_try; sym_case; sym_block; sym_asm; sym_with; sym_raise; sym_statement; sym_goto;
   sym__statement]; STATE 14250 [sym_ifTr; sym_ifElseTr; sym_whileTr; sym_repeatTr; sym_forTr;
   sym_foreachTr; sym_tryTr; sym_caseTr]; STATE 14251 [sym_blockTr]; STATE 14250 [sym_asmTr;
   sym_withTr; sym_raiseTr; sym_statementTr; sym_gotoTr; sym__statementTr];
   STATE 13915 [sym_assignment]; STATE 11785 [sym_varAssignDef]; STATE 13915 [sym_varDef;
   sym_constDef]; STATE 6166 [sym_label]; STATE 14250 [sym__statementsTr]; STATE 8019 [sym__expr;
   sym_exprConditional]; STATE 7478 [sym__ref; sym_lambda; sym_inherited; sym_exprDot;
   sym_exprDeref; sym_exprAs; sym_exprTpl; sym_exprSubscript; sym_exprCall];
   STATE 8019 [sym_exprBinary; sym_exprUnary]; STATE 7478 [sym_exprParens; sym_exprBrackets;
   sym__literal; sym_literalString]; STATE 6664 [sym__literalString; sym_literalChar];
   STATE 7478 [sym_literalNumber]; STATE 7742 [sym__literalInt; sym__literalFloat];
   STATE 1380 [sym__ppIf]; STATE 6327 [sym__ppStatementBlock];
   STATE 11840 [aux_sym_labeledStatement_repeat1]; STATE 863 [aux_sym__statementsTr_repeat1];
   STATE 6664 [aux_sym_literalString_repeat1]; ACTIONS 397 [anon_sym_SEMI];
   ACTIONS 2451 [anon_sym_COLON]; ACTIONS 399 [anon_sym_LBRACK]; ACTIONS 401 [anon_sym_LPAREN];
   ACTIONS 403 [aux_sym__literalString_token1]; ACTIONS 405 [anon_sym_POUND];
   ACTIONS 407 [aux_sym__literalInt_token1]; ACTIONS 409 [aux_sym__literalInt_token2;
   aux_sym__literalInt_token3]; ACTIONS 407 [aux_sym__literalFloat_token1];
   ACTIONS 411 [aux_sym_ppUsesBlock_token1]; ACTIONS 413 [sym_kAdd; sym_kSub];
   ACTIONS 415 [sym_kAt]; ACTIONS 417 [sym_kTrue; sym_kFalse]; ACTIONS 419 [sym_labelNumber];
   ACTIONS 3 [sym__space]; ACTIONS 5 [sym_ppDirective]; ACTIONS 3 [sym_comment];
   ACTIONS 417 [sym_ppFragmentExpr]; ACTIONS 397 [sym_ppFragmentStmt];
   ACTIONS 403 [sym__literalStringMultiline]; ACTIONS 421 [sym_identifier];
   ACTIONS 423 [sym_kSpecialize]; ACTIONS 427 [sym_kAsm]; ACTIONS 429 [sym_kBegin];
   ACTIONS 431 [sym_kCase]; ACTIONS 433 [sym_kConst]; ACTIONS 2453 [sym_kEnd];
   ACTIONS 437 [sym_kFor]; ACTIONS 439 [sym_kFunction]; ACTIONS 441 [sym_kGoto];
   ACTIONS 443 [sym_kIf]; ACTIONS 445 [sym_kInherited]; ACTIONS 417 [sym_kNil];
   ACTIONS 415 [sym_kNot]; ACTIONS 439 [sym_kProcedure]; ACTIONS 447 [sym_kRaise];
   ACTIONS 449 [sym_kRepeat]; ACTIONS 451 [sym_kString]; ACTIONS 453 [sym_kTry];
   ACTIONS 455 [sym_kVar]; ACTIONS 457 [sym_kWhile]; ACTIONS 459 [sym_kWith]].

(** State 359. *)
Definition ts_parse_table_359 : parse_row :=
  [STATE 6213 [sym_if]; STATE 6327 [sym_ifElse; sym_while; sym_repeat; sym_for; sym_foreach;
   sym_try; sym_case; sym_block; sym_asm; sym_with; sym_raise; sym_statement; sym_goto;
   sym__statement]; STATE 14253 [sym_ifTr; sym_ifElseTr; sym_whileTr; sym_repeatTr; sym_forTr;
   sym_foreachTr; sym_tryTr; sym_caseTr]; STATE 14251 [sym_blockTr]; STATE 14253 [sym_asmTr;
   sym_withTr; sym_raiseTr; sym_statementTr; sym_gotoTr; sym__statementTr];
   STATE 13915 [sym_assignment]; STATE 11785 [sym_varAssignDef]; STATE 13915 [sym_varDef;
   sym_constDef]; STATE 6166 [sym_label]; STATE 14253 [sym__statementsTr]; STATE 8019 [sym__expr;
   sym_exprConditional]; STATE 7478 [sym__ref; sym_lambda; sym_inherited; sym_exprDot;
   sym_exprDeref; sym_exprAs; sym_exprTpl; sym_exprSubscript; sym_exprCall];
   STATE 8019 [sym_exprBinary; sym_exprUnary]; STATE 7478 [sym_exprParens; sym_exprBrackets;
   sym__literal; sym_literalString]; STATE 6664 [sym__literalString; sym_literalChar];
   STATE 7478 [sym_literalNumber]; STATE 7742 [sym__literalInt; sym__literalFloat];
   STATE 1380 [sym__ppIf]; STATE 6327 [sym__ppStatementBlock];
   STATE 11840 [aux_sym_labeledStatement_repeat1]; STATE 863 [aux_sym__statementsTr_repeat1];
   STATE 6664 [aux_sym_literalString_repeat1]; ACTIONS 397 [anon_sym_SEMI];
   ACTIONS 2455 [anon_sym_COLON]; ACTIONS 399 [anon_sym_LBRACK]; ACTIONS 401 [anon_sym_LPAREN];
   ACTIONS 403 [aux_sym__literalString_token1]; ACTIONS 405 [anon_sym_POUND];
   ACTIONS 407 [aux_sym__literalInt_token1]; ACTIONS 409 [aux_sym__literalInt_token2;
   aux_sym__literalInt_token3]; ACTIONS 407 [aux_sym__literalFloat_token1];
   ACTIONS 411 [aux_sym_ppUsesBlock_token1]; ACTIONS 413 [sym_kAdd; sym_kSub];
   ACTIONS 415 [sym_kAt]; ACTIONS 417 [sym_kTrue; sym_kFalse]; ACTIONS 419 [sym_labelNumber];
   ACTIONS 3 [sym__space]; ACTIONS 5 [sym_ppDirective]; ACTIONS 3 [sym_comment];
   ACTIONS 417 [sym_ppFragmentExpr]; ACTIONS 397 [sym_ppFragmentStmt];
   ACTIONS 403 [sym__literalStringMultiline]; ACTIONS 421 [sym_identifier];
   ACTIONS 423 [sym_kSpecialize]; ACTIONS 427 [sym_kAsm]; ACTIONS 429 [sym_kBegin];
   ACTIONS 431 [sym_kCase]; ACTIONS 433 [sym_kConst]; ACTIONS 2457 [sym_kEnd];
   ACTIONS 437 [sym_kFor]; ACTIONS 439 [sym_kFunction]; ACTIONS 441 [sym_kGoto];
   ACTIONS 443 [sym_kIf]; ACTIONS 445 [sym_kInherited]; ACTIONS 417 [sym_kNil];
   ACTIONS 415 [sym_kNot]; ACTIONS 439 [sym_kProcedure]; ACTIONS 447 [sym_kRaise];
   ACTIONS 449 [sym_kRepeat]; ACTIONS 451 [sym_kString]; ACTIONS 453 [sym_kTry];
   ACTIONS 455 [sym_kVar]; ACTIONS 457 [sym_kWhile]; ACTIONS 459 [sym_kWith]].

(** State 360. *)
Definition ts_parse_table_360 : parse_row :=
  [STATE 6273 [sym_if]; STATE 6303 [sym_ifElse; sym_while; sym_repeat; sym_for; sym_foreach;
   sym_try; sym_case; sym_block; sym_asm; sym_with; sym_raise; sym_statement; sym_goto;
   sym__statement]; STATE 15875 [sym_ifTr; sym_ifElseTr; sym_whileTr; sym_repeatTr; sym_forTr;
   sym_foreachTr; sym_tryTr; sym_caseTr]; STATE 14967 [sym_blockTr]; STATE 15875 [sym_asmTr;
   sym_withTr; sym_raiseTr; sym_statementTr; sym_gotoTr; sym__statementTr];
   STATE 13420 [sym_assignment]; STATE 11684 [sym_varAssignDef]; STATE 13420 [sym_varDef;
   sym_constDef]; STATE 6307 [sym_label]; STATE 15875 [sym__statementsTr];
   STATE 15495 [sym_statementsTr]; STATE 8128 [sym__expr; sym_exprConditional];
   STATE 7533 [sym__ref; sym_lambda; sym_inherited; sym_exprDot; sym_exprDeref; sym_exprAs;
   sym_exprTpl; sym_exprSubscript; sym_exprCall]; STATE 8128 [sym_exprBinary; sym_exprUnary];
   STATE 7533 [sym_exprParens; sym_exprBrackets; sym__literal; sym_literalString];
   STATE 6915 [sym__literalString; sym_literalChar]; STATE 7533 [sym_literalNumber];
   STATE 7570 [sym__literalInt; sym__literalFloat]; STATE 1383 [sym__ppIf];
   STATE 6303 [sym__ppStatementBlock]; STATE 11951 [aux_sym_labeledStatement_repeat1];
   STATE 860 [aux_sym__statementsTr_repeat1]; STATE 6915 [aux_sym_literalString_repeat1];
   ACTIONS 925 [anon_sym_SEMI]; ACTIONS 927 [anon_sym_LBRACK]; ACTIONS 929 [anon_sym_LPAREN];
   ACTIONS 931 [aux_sym__literalString_token1]; ACTIONS 933 [anon_sym_POUND];
   ACTIONS 935 [aux_sym__literalInt_token1]; ACTIONS 937 [aux_sym__literalInt_token2;
   aux_sym__literalInt_token3]; ACTIONS 935 [aux_sym__literalFloat_token1];
   ACTIONS 411 [aux_sym_ppUsesBlock_token1]; ACTIONS 939 [sym_kAdd; sym_kSub];
   ACTIONS 941 [sym_kAt]; ACTIONS 943 [sym_kTrue; sym_kFalse]; ACTIONS 945 [sym_labelNumber];
   ACTIONS 3 [sym__space]; ACTIONS 5 [sym_ppDirective]; ACTIONS 3 [sym_comment];
   ACTIONS 943 [sym_ppFragmentExpr]; ACTIONS 925 [sym_ppFragmentStmt];
   ACTIONS 931 [sym__literalStringMultiline]; ACTIONS 947 [sym_identifier];
   ACTIONS 949 [sym_kSpecialize]; ACTIONS 951 [sym_kAsm]; ACTIONS 953 [sym_kBegin];
   ACTIONS 955 [sym_kCase]; ACTIONS 957 [sym_kConst]; ACTIONS 959 [sym_kFor];
   ACTIONS 961 [sym_kFunction]; ACTIONS 963 [sym_kGoto]; ACTIONS 965 [sym_kIf];
   ACTIONS 967 [sym_kInherited]; ACTIONS 943 [sym_kNil]; ACTIONS 941 [sym_kNot];
   ACTIONS 961 [sym_kProcedure]; ACTIONS 969 [sym_kRaise]; ACTIONS 971 [sym_kRepeat];
   ACTIONS 973 [sym_kString]; ACTIONS 975 [sym_kTry]; ACTIONS 2459 [sym_kUntil];
   ACTIONS 979 [sym_kVar]; ACTIONS 981 [sym_kWhile]; ACTIONS 983 [sym_kWith]].

(** State 361. *)
Definition ts_parse_table_361 : parse_row :=
  [STATE 6213 [sym_if]; STATE 6327 [sym_ifElse; sym_while; sym_repeat; sym_for; sym_foreach;
   sym_try; sym_case; sym_block; sym_asm; sym_with; sym_raise; sym_statement; sym_goto;
   sym__statement]; STATE 15991 [sym_ifTr; sym_ifElseTr; sym_whileTr; sym_repeatTr; sym_forTr;
   sym_foreachTr; sym_tryTr; sym_caseTr]; STATE 14251 [sym_blockTr]; STATE 15991 [sym_asmTr;
   sym_withTr; sym_raiseTr; sym_statementTr; sym_gotoTr; sym__statementTr];
   STATE 13915 [sym_assignment]; STATE 11785 [sym_varAssignDef]; STATE 13915 [sym_varDef;
   sym_constDef]; STATE 6166 [sym_label]; STATE 15991 [sym__statementsTr];
   STATE 15579 [sym_statementsTr]; STATE 8019 [sym__expr; sym_exprConditional];
   STATE 7478 [sym__ref; sym_lambda; sym_inherited; sym_exprDot; sym_exprDeref; sym_exprAs;
   sym_exprTpl; sym_exprSubscript; sym_exprCall]; STATE 8019 [sym_exprBinary; sym_exprUnary];
   STATE 7478 [sym_exprParens; sym_exprBrackets; sym__literal; sym_literalString];
   STATE 6664 [sym__literalString; sym_literalChar]; STATE 7478 [sym_literalNumber];
   STATE 7742 [sym__literalInt; sym__literalFloat]; STATE 1380 [sym__ppIf];
   STATE 6327 [sym__ppStatementBlock]; STATE 11840 [aux_sym_labeledStatement_repeat1];
   STATE 863 [aux_sym__statementsTr_repeat1]; STATE 6664 [aux_sym_literalString_repeat1];
   ACTIONS 397 [anon_sym_SEMI]; ACTIONS 399 [anon_sym_LBRACK]; ACTIONS 401 [anon_sym_LPAREN];
   ACTIONS 403 [aux_sym__literalString_token1]; ACTIONS 405 [anon_sym_POUND];
   ACTIONS 407 [aux_sym__literalInt_token1]; ACTIONS 409 [aux_sym__literalInt_token2;
   aux_sym__literalInt_token3]; ACTIONS 407 [aux_sym__literalFloat_token1];
   ACTIONS 411 [aux_sym_ppUsesBlock_token1]; ACTIONS 413 [sym_kAdd; sym_kSub];
   ACTIONS 415 [sym_kAt]; ACTIONS 417 [sym_kTrue; sym_kFalse]; ACTIONS 419 [sym_labelNumber];
   ACTIONS 3 [sym__space]; ACTIONS 5 [sym_ppDirective]; ACTIONS 3 [sym_comment];
   ACTIONS 417 [sym_ppFragmentExpr]; ACTIONS 397 [sym_ppFragmentStmt];
   ACTIONS 403 [sym__literalStringMultiline]; ACTIONS 421 [sym_identifier];
   ACTIONS 423 [sym_kSpecialize]; ACTIONS 427 [sym_kAsm]; ACTIONS 429 [sym_kBegin];
   ACTIONS 431 [sym_kCase]; ACTIONS 433 [sym_kConst]; ACTIONS 2461 [sym_kEnd];
   ACTIONS 437 [sym_kFor]; ACTIONS 439 [sym_kFunction]; ACTIONS 441 [sym_kGoto];
   ACTIONS 443 [sym_kIf]; ACTIONS 445 [sym_kInherited]; ACTIONS 417 [sym_kNil];
   ACTIONS 415 [sym_kNot]; ACTIONS 439 [sym_kProcedure]; ACTIONS 447 [sym_kRaise];
   ACTIONS 449 [sym_kRepeat]; ACTIONS 451 [sym_kString]; ACTIONS 453 [sym_kTry];
   ACTIONS 455 [sym_kVar]; ACTIONS 457 [sym_kWhile]; ACTIONS 459 [sym_kWith]].

(** State 362. *)
Definition ts_parse_table_362 : parse_row :=
  [STATE 6213 [sym_if]; STATE 6327 [sym_ifElse; sym_while; sym_repeat; sym_for; sym_foreach;
   sym_try; sym_case; sym_block; sym_asm; sym_with; sym_raise; sym_statement; sym_goto;
   sym__statement]; STATE 15991 [sym_ifTr; sym_ifElseTr; sym_whileTr; sym_repeatTr; sym_forTr;
   sym_foreachTr; sym_tryTr; sym_caseTr]; STATE 14251 [sym_blockTr]; STATE 15991 [sym_asmTr;
   sym_withTr; sym_raiseTr; sym_statementTr; sym_gotoTr; sym__statementTr];
   STATE 13915 [sym_assignment]; STATE 11785 [sym_varAssignDef]; STATE 13915 [sym_varDef;
   sym_constDef]; STATE 6166 [sym_label]; STATE 15991 [sym__statementsTr];
   STATE 15638 [sym_statementsTr]; STATE 8019 [sym__expr; sym_exprConditional];
   STATE 7478 [sym__ref; sym_lambda; sym_inherited; sym_exprDot; sym_exprDeref; sym_exprAs;
   sym_exprTpl; sym_exprSubscript; sym_exprCall]; STATE 8019 [sym_exprBinary; sym_exprUnary];
   STATE 7478 [sym_exprParens; sym_exprBrackets; sym__literal; sym_literalString];
   STATE 6664 [sym__literalString; sym_literalChar]; STATE 7478 [sym_literalNumber];
   STATE 7742 [sym__literalInt; sym__literalFloat]; STATE 1380 [sym__ppIf];
   STATE 6327 [sym__ppStatementBlock]; STATE 11840 [aux_sym_labeledStatement_repeat1];
   STATE 863 [aux_sym__statementsTr_repeat1]; STATE 6664 [aux_sym_literalString_repeat1];
   ACTIONS 397 [anon_sym_SEMI]; ACTIONS 399 [anon_sym_LBRACK]; ACTIONS 401 [anon_sym_LPAREN];
   ACTIONS 403 [aux_sym__literalString_token1]; ACTIONS 405 [anon_sym_POUND];
   ACTIONS 407 [aux_sym__literalInt_token1]; ACTIONS 409 [aux_sym__literalInt_token2;
   aux_sym__literalInt_token3]; ACTIONS 407 [aux_sym__literalFloat_token1];
   ACTIONS 411 [aux_sym_ppUsesBlock_token1]; ACTIONS 413 [sym_kAdd; sym_kSub];
   ACTIONS 415 [sym_kAt]; ACTIONS 417 [sym_kTrue; sym_kFalse]; ACTIONS 419 [sym_labelNumber];
   ACTIONS 3 [sym__space]; ACTIONS 5 [sym_ppDirective]; ACTIONS 3 [sym_comment];
   ACTIONS 417 [sym_ppFragmentExpr]; ACTIONS 397 [sym_ppFragmentStmt];
   ACTIONS 403 [sym__literalStringMultiline]; ACTIONS 421 [sym_identifier];
   ACTIONS 423 [sym_kSpecialize]; ACTIONS 427 [sym_kAsm]; ACTIONS 429 [sym_kBegin];
   ACTIONS 431 [sym_kCase]; ACTIONS 433 [sym_kConst]; ACTIONS 2463 [sym_kEnd];
   ACTIONS 437 [sym_kFor]; ACTIONS 439 [sym_kFunction]; ACTIONS 441 [sym_kGoto];
   ACTIONS 443 [sym_kIf]; ACTIONS 445 [sym_kInherited]; ACTIONS 417 [sym_kNil];
   ACTIONS 415 [sym_kNot]; ACTIONS 439 [sym_kProcedure]; ACTIONS 447 [sym_kRaise];
   ACTIONS 449 [sym_kRepeat]; ACTIONS 451 [sym_kString]; ACTIONS 453 [sym_kTry];
   ACTIONS 455 [sym_kVar]; ACTIONS 457 [sym_kWhile]; ACTIONS 459 [sym_kWith]].

(** State 363. *)
Definition ts_parse_table_363 : parse_row :=
  [STATE 6213 [sym_if]; STATE 6327 [sym_ifElse; sym_while; sym_repeat; sym_for; sym_foreach;
   sym_try; sym_case; sym_block; sym_asm; sym_with; sym_raise; sym_statement; sym_goto;
   sym__statement]; STATE 15664 [sym_ifTr; sym_ifElseTr; sym_whileTr; sym_repeatTr; sym_forTr;
   sym_foreachTr; sym_tryTr; sym_caseTr]; STATE 14251 [sym_blockTr]; STATE 15664 [sym_asmTr;
   sym_withTr; sym_raiseTr; sym_statementTr; sym_gotoTr; sym__statementTr];
   STATE 13915 [sym_assignment]; STATE 11785 [sym_varAssignDef]; STATE 13915 [sym_varDef;
   sym_constDef]; STATE 6166 [sym_label]; STATE 15664 [sym__statementsTr]; STATE 8019 [sym__expr;
   sym_exprConditional]; STATE 7478 [sym__ref; sym_lambda; sym_inherited; sym_exprDot;
   sym_exprDeref; sym_exprAs; sym_exprTpl; sym_exprSubscript; sym_exprCall];
   STATE 8019 [sym_exprBinary; sym_exprUnary]; STATE 7478 [sym_exprParens; sym_exprBrackets;
   sym__literal; sym_literalString]; STATE 6664 [sym__literalString; sym_literalChar];
   STATE 7478 [sym_literalNumber]; STATE 7742 [sym__literalInt; sym__literalFloat];
   STATE 1380 [sym__ppIf]; STATE 6327 [sym__ppStatementBlock];
   STATE 11840 [aux_sym_labeledStatement_repeat1]; STATE 863 [aux_sym__statementsTr_repeat1];
   STATE 6664 [aux_sym_literalString_repeat1]; ACTIONS 397 [anon_sym_SEMI];
   ACTIONS 2465 [anon_sym_COLON]; ACTIONS 399 [anon_sym_LBRACK]; ACTIONS 401 [anon_sym_LPAREN];
   ACTIONS 403 [aux_sym__literalString_token1]; ACTIONS 405 [anon_sym_POUND];
   ACTIONS 407 [aux_sym__literalInt_token1]; ACTIONS 409 [aux_sym__literalInt_token2;
   aux_sym__literalInt_token3]; ACTIONS 407 [aux_sym__literalFloat_token1];
   ACTIONS 411 [aux_sym_ppUsesBlock_token1]; ACTIONS 413 [sym_kAdd; sym_kSub];
   ACTIONS 415 [sym_kAt]; ACTIONS 417 [sym_kTrue; sym_kFalse]; ACTIONS 419 [sym_labelNumber];
   ACTIONS 3 [sym__space]; ACTIONS 5 [sym_ppDirective]; ACTIONS 3 [sym_comment];
   ACTIONS 417 [sym_ppFragmentExpr]; ACTIONS 397 [sym_ppFragmentStmt];
   ACTIONS 403 [sym__literalStringMultiline]; ACTIONS 421 [sym_identifier];
   ACTIONS 423 [sym_kSpecialize]; ACTIONS 427 [sym_kAsm]; ACTIONS 429 [sym_kBegin];
   ACTIONS 431 [sym_kCase]; ACTIONS 433 [sym_kConst]; ACTIONS 2467 [sym_kEnd];
   ACTIONS 437 [sym_kFor]; ACTIONS 439 [sym_kFunction]; ACTIONS 441 [sym_kGoto];
   ACTIONS 443 [sym_kIf]; ACTIONS 445 [sym_kInherited]; ACTIONS 417 [sym_kNil];
   ACTIONS 415 [sym_kNot]; ACTIONS 439 [sym_kProcedure]; ACTIONS 447 [sym_kRaise];
   ACTIONS 449 [sym_kRepeat]; ACTIONS 451 [sym_kString]; ACTIONS 453 [sym_kTry];
   ACTIONS 455 [sym_kVar]; ACTIONS 457 [sym_kWhile]; ACTIONS 459 [sym_kWith]].

(** State 364. *)
Definition ts_parse_table_364 : parse_row :=
  [STATE 6213 [sym_if]; STATE 6327 [sym_ifElse; sym_while; sym_repeat; sym_for; sym_foreach;
   sym_try; sym_case; sym_block; sym_asm; sym_with; sym_raise; sym_statement; sym_goto;
   sym__statement]; STATE 15673 [sym_ifTr; sym_ifElseTr; sym_whileTr; sym_repeatTr; sym_forTr;
   sym_foreachTr; sym_tryTr; sym_caseTr]; STATE 14251 [sym_blockTr]; STATE 15673 [sym_asmTr;
   sym_withTr; sym_raiseTr; sym_statementTr; sym_gotoTr; sym__statementTr];
   STATE 13915 [sym_assignment]; STATE 11785 [sym_varAssignDef]; STATE 13915 [sym_varDef;
   sym_constDef]; STATE 6166 [sym_label]; STATE 15673 [sym__statementsTr]; STATE 8019 [sym__expr;
   sym_exprConditional]; STATE 7478 [sym__ref; sym_lambda; sym_inherited; sym_exprDot;
   sym_exprDeref; sym_exprAs; sym_exprTpl; sym_exprSubscript; sym_exprCall];
   STATE 8019 [sym_exprBinary; sym_exprUnary]; STATE 7478 [sym_exprParens; sym_exprBrackets;
   sym__literal; sym_literalString]; STATE 6664 [sym__literalString; sym_literalChar];
   STATE 7478 [sym_literalNumber]; STATE 7742 [sym__literalInt; sym__literalFloat];
   STATE 1380 [sym__ppIf]; STATE 6327 [sym__ppStatementBlock];
   STATE 11840 [aux_sym_labeledStatement_repeat1]; STATE 863 [aux_sym__statementsTr_repeat1];
   STATE 6664 [aux_sym_literalString_repeat1]; ACTIONS 397 [anon_sym_SEMI];
   ACTIONS 2469 [anon_sym_COLON]; ACTIONS 399 [anon_sym_LBRACK]; ACTIONS 401 [anon_sym_LPAREN];
   ACTIONS 403 [aux_sym__literalString_token1]; ACTIONS 405 [anon_sym_POUND];
   ACTIONS 407 [aux_sym__literalInt_token1]; ACTIONS 409 [aux_sym__literalInt_token2;
   aux_sym__literalInt_token3]; ACTIONS 407 [aux_sym__literalFloat_token1];
   ACTIONS 411 [aux_sym_ppUsesBlock_token1]; ACTIONS 413 [sym_kAdd; sym_kSub];
   ACTIONS 415 [sym_kAt]; ACTIONS 417 [sym_kTrue; sym_kFalse]; ACTIONS 419 [sym_labelNumber];
   ACTIONS 3 [sym__space]; ACTIONS 5 [sym_ppDirective]; ACTIONS 3 [sym_comment];
   ACTIONS 417 [sym_ppFragmentExpr]; ACTIONS 397 [sym_ppFragmentStmt];
   ACTIONS 403 [sym__literalStringMultiline]; ACTIONS 421 [sym_identifier];
   ACTIONS 423 [sym_kSpecialize]; ACTIONS 427 [sym_kAsm]; ACTIONS 429 [sym_kBegin];
   ACTIONS 431 [sym_kCase]; ACTIONS 433 [sym_kConst]; ACTIONS 2471 [sym_kEnd];
   ACTIONS 437 [sym_kFor]; ACTIONS 439 [sym_kFunction]; ACTIONS 441 [sym_kGoto];
   ACTIONS 443 [sym_kIf]; ACTIONS 445 [sym_kInherited]; ACTIONS 417 [sym_kNil];
   ACTIONS 415 [sym_kNot]; ACTIONS 439 [sym_kProcedure]; ACTIONS 447 [sym_kRaise];
   ACTIONS 449 [sym_kRepeat]; ACTIONS 451 [sym_kString]; ACTIONS 453 [sym_kTry];
   ACTIONS 455 [sym_kVar]; ACTIONS 457 [sym_kWhile]; ACTIONS 459 [sym_kWith]].

(** State 365. *)
Definition ts_parse_table_365 : parse_row :=
  [STATE 6213 [sym_if]; STATE 6327 [sym_ifElse; sym_while; sym_repeat; sym_for; sym_foreach;
   sym_try; sym_case; sym_block; sym_asm; sym_with; sym_raise; sym_statement; sym_goto;
   sym__statement]; STATE 15685 [sym_ifTr; sym_ifElseTr; sym_whileTr; sym_repeatTr; sym_forTr;
   sym_foreachTr; sym_tryTr; sym_caseTr]; STATE 14251 [sym_blockTr]; STATE 15685 [sym_asmTr;
   sym_withTr; sym_raiseTr; sym_statementTr; sym_gotoTr; sym__statementTr];
   STATE 13915 [sym_assignment]; STATE 11785 [sym_varAssignDef]; STATE 13915 [sym_varDef;
   sym_constDef]; STATE 6166 [sym_label]; STATE 15685 [sym__statementsTr]; STATE 8019 [sym__expr;
   sym_exprConditional]; STATE 7478 [sym__ref; sym_lambda; sym_inherited; sym_exprDot;
   sym_exprDeref; sym_exprAs; sym_exprTpl; sym_exprSubscript; sym_exprCall];
   STATE 8019 [sym_exprBinary; sym_exprUnary]; STATE 7478 [sym_exprParens; sym_exprBrackets;
   sym__literal; sym_literalString]; STATE 6664 [sym__literalString; sym_literalChar];
   STATE 7478 [sym_literalNumber]; STATE 7742 [sym__literalInt; sym__literalFloat];
   STATE 1380 [sym__ppIf]; STATE 6327 [sym__ppStatementBlock];
   STATE 11840 [aux_sym_labeledStatement_repeat1]; STATE 863 [aux_sym__statementsTr_repeat1];
   STATE 6664 [aux_sym_literalString_repeat1]; ACTIONS 397 [anon_sym_SEMI];
   ACTIONS 2473 [anon_sym_COLON]; ACTIONS 399 [anon_sym_LBRACK]; ACTIONS 401 [anon_sym_LPAREN];
   ACTIONS 403 [aux_sym__literalString_token1]; ACTIONS 405 [anon_sym_POUND];
   ACTIONS 407 [aux_sym__literalInt_token1]; ACTIONS 409 [aux_sym__literalInt_token2;
   aux_sym__literalInt_token3]; ACTIONS 407 [aux_sym__literalFloat_token1];
   ACTIONS 411 [aux_sym_ppUsesBlock_token1]; ACTIONS 413 [sym_kAdd; sym_kSub];
   ACTIONS 415 [sym_kAt]; ACTIONS 417 [sym_kTrue; sym_kFalse]; ACTIONS 419 [sym_labelNumber];
   ACTIONS 3 [sym__space]; ACTIONS 5 [sym_ppDirective]; ACTIONS 3 [sym_comment];
   ACTIONS 417 [sym_ppFragmentExpr]; ACTIONS 397 [sym_ppFragmentStmt];
   ACTIONS 403 [sym__literalStringMultiline]; ACTIONS 421 [sym_identifier];
   ACTIONS 423 [sym_kSpecialize]; ACTIONS 427 [sym_kAsm]; ACTIONS 429 [sym_kBegin];
   ACTIONS 431 [sym_kCase]; ACTIONS 433 [sym_kConst]; ACTIONS 2475 [sym_kEnd];
   ACTIONS 437 [sym_kFor]; ACTIONS 439 [sym_kFunction]; ACTIONS 441 [sym_kGoto];
   ACTIONS 443 [sym_kIf]; ACTIONS 445 [sym_kInherited]; ACTIONS 417 [sym_kNil];
   ACTIONS 415 [sym_kNot]; ACTIONS 439 [sym_kProcedure]; ACTIONS 447 [sym_kRaise];
   ACTIONS 449 [sym_kRepeat]; ACTIONS 451 [sym_kString]; ACTIONS 453 [sym_kTry];
   ACTIONS 455 [sym_kVar]; ACTIONS 457 [sym_kWhile]; ACTIONS 459 [sym_kWith]].

(** State 366. *)
Definition ts_parse_table_366 : parse_row :=
  [STATE 6273 [sym_if]; STATE 6303 [sym_ifElse; sym_while; sym_repeat; sym_for; sym_foreach;
   sym_try; sym_case; sym_block; sym_asm; sym_with; sym_raise; sym_statement; sym_goto;
   sym__statement]; STATE 15875 [sym_ifTr; sym_ifElseTr; sym_whileTr; sym_repeatTr; sym_forTr;
   sym_foreachTr; sym_tryTr; sym_caseTr]; STATE 14967 [sym_blockTr]; STATE 15875 [sym_asmTr;
   sym_withTr; sym_raiseTr; sym_statementTr; sym_gotoTr; sym__statementTr];
   STATE 13420 [sym_assignment]; STATE 11684 [sym_varAssignDef]; STATE 13420 [sym_varDef;
   sym_constDef]; STATE 6307 [sym_label]; STATE 15875 [sym__statementsTr];
   STATE 15798 [sym_statementsTr]; STATE 8128 [sym__expr; sym_exprConditional];
   STATE 7533 [sym__ref; sym_lambda; sym_inherited; sym_exprDot; sym_exprDeref; sym_exprAs;
   sym_exprTpl; sym_exprSubscript; sym_exprCall]; STATE 8128 [sym_exprBinary; sym_exprUnary];
   STATE 7533 [sym_exprParens; sym_exprBrackets; sym__literal; sym_literalString];
   STATE 6915 [sym__literalString; sym_literalChar]; STATE 7533 [sym_literalNumber];
   STATE 7570 [sym__literalInt; sym__literalFloat]; STATE 1383 [sym__ppIf];
   STATE 6303 [sym__ppStatementBlock]; STATE 11951 [aux_sym_labeledStatement_repeat1];
   STATE 860 [aux_sym__statementsTr_repeat1]; STATE 6915 [aux_sym_literalString_repeat1];
   ACTIONS 925 [anon_sym_SEMI]; ACTIONS 927 [anon_sym_LBRACK]; ACTIONS 929 [anon_sym_LPAREN];
   ACTIONS 931 [aux_sym__literalString_token1]; ACTIONS 933 [anon_sym_POUND];
   ACTIONS 935 [aux_sym__literalInt_token1]; ACTIONS 937 [aux_sym__literalInt_token2;
   aux_sym__literalInt_token3]; ACTIONS 935 [aux_sym__literalFloat_token1];
   ACTIONS 411 [aux_sym_ppUsesBlock_token1]; ACTIONS 939 [sym_kAdd; sym_kSub];
   ACTIONS 941 [sym_kAt]; ACTIONS 943 [sym_kTrue; sym_kFalse]; ACTIONS 945 [sym_labelNumber];
   ACTIONS 3 [sym__space]; ACTIONS 5 [sym_ppDirective]; ACTIONS 3 [sym_comment];
   ACTIONS 943 [sym_ppFragmentExpr]; ACTIONS 925 [sym_ppFragmentStmt];
   ACTIONS 931 [sym__literalStringMultiline]; ACTIONS 947 [sym_identifier];
   ACTIONS 949 [sym_kSpecialize]; ACTIONS 951 [sym_kAsm]; ACTIONS 953 [sym_kBegin];
   ACTIONS 955 [sym_kCase]; ACTIONS 957 [sym_kConst]; ACTIONS 959 [sym_kFor];
   ACTIONS 961 [sym_kFunction]; ACTIONS 963 [sym_kGoto]; ACTIONS 965 [sym_kIf];
   ACTIONS 967 [sym_kInherited]; ACTIONS 943 [sym_kNil]; ACTIONS 941 [sym_kNot];
   ACTIONS 961 [sym_kProcedure]; ACTIONS 969 [sym_kRaise]; ACTIONS 971 [sym_kRepeat];
   ACTIONS 973 [sym_kString]; ACTIONS 975 [sym_kTry]; ACTIONS 2477 [sym_kUntil];
   ACTIONS 979 [sym_kVar]; ACTIONS 981 [sym_kWhile]; ACTIONS 983 [sym_kWith]].

(** State 367. *)
Definition ts_parse_table_367 : parse_row :=
  [STATE 2899 [sym__ppIf]; STATE 996 [sym__procAttributeNoExt];
   STATE 1005 [sym__procAttributesPp]; STATE 15262 [sym_procAttribute];
   STATE 434 [aux_sym__declProc_repeat1]; ACTIONS 2479 [anon_sym_SEMI; anon_sym_COMMA];
   ACTIONS 2481 [anon_sym_LBRACK]; ACTIONS 2484 [anon_sym_LPAREN];
   ACTIONS 2479 [aux_sym__literalString_token1; anon_sym_POUND];
   ACTIONS 2484 [aux_sym__literalInt_token1]; ACTIONS 2479 [aux_sym__literalInt_token2;
   aux_sym__literalInt_token3]; ACTIONS 2484 [aux_sym__literalFloat_token1];
   ACTIONS 2486 [aux_sym_ppUsesBlock_token1]; ACTIONS 2479 [aux_sym_ppUsesBlock_token2;
   aux_sym_ppUsesBlock_token3]; ACTIONS 2484 [sym_kAdd; sym_kSub]; ACTIONS 2479 [sym_kAt;
   sym_kTrue; sym_kFalse]; ACTIONS 3 [sym__space]; ACTIONS 5 [sym_ppDirective];
   ACTIONS 3 [sym_comment]; ACTIONS 2479 [sym_ppFragmentExpr; sym__literalStringMultiline;
   sym_identifier]; ACTIONS 2489 [sym_kDefault; sym_kNodefault]; ACTIONS 2492 [sym_kDispId];
   ACTIONS 2479 [sym_kGeneric; sym_kSpecialize; sym_kOperator]; ACTIONS 2495 [sym_kPublic];
   ACTIONS 2479 [sym_kForward]; ACTIONS 2489 [sym_kStatic; sym_kVirtual; sym_kAbstract;
   sym_kDynamic; sym_kOverride; sym_kOverload; sym_kReintroduce; sym_kStdcall; sym_kCdecl;
   sym_kCppdecl; sym_kPascal; sym_kRegister; sym_kMwpascal]; ACTIONS 2479 [sym_kExternal];
   ACTIONS 2498 [sym_kMessage]; ACTIONS 2501 [sym_kDeprecated]; ACTIONS 2489 [sym_kExperimental;
   sym_kPlatform; sym_kUnimplemented; sym_kCvar]; ACTIONS 2504 [sym_kExport];
   ACTIONS 2489 [sym_kFar; sym_kNear; sym_kSafecall; sym_kAssembler; sym_kNostackframe;
   sym_kInterrupt; sym_kNoreturn; sym_kIocheck; sym_kLocal; sym_kHardfloat; sym_kSoftfloat;
   sym_kMs_abi_default; sym_kMs_abi_cdecl; sym_kSaveregisters; sym_kSysv_abi_default;
   sym_kSysv_abi_cdecl; sym_kVectorcall; sym_kVarargs; sym_kWinapi]; ACTIONS 2507 [sym_kAlias];
   ACTIONS 2479 [sym_kAsm; sym_kBegin; sym_kCase; sym_kClass; sym_kConst; sym_kConstructor;
   sym_kDestructor; sym_kExports; sym_kFor; sym_kFunction; sym_kGoto; sym_kIf; sym_kInherited];
   ACTIONS 1016 [sym_kInline]; ACTIONS 2479 [sym_kLabel; sym_kNil; sym_kNot; sym_kProcedure;
   sym_kProperty; sym_kRaise; sym_kRepeat; sym_kResourcestring; sym_kString; sym_kThreadvar;
   sym_kTry; sym_kType; sym_kUses; sym_kVar; sym_kWhile; sym_kWith]].

(** State 368. *)
Definition ts_parse_table_368 : parse_row :=
  [STATE 2899 [sym__ppIf]; STATE 996 [sym__procAttributeNoExt];
   STATE 1005 [sym__procAttributesPp]; STATE 15262 [sym_procAttribute];
   STATE 183 [aux_sym__declProc_repeat1]; ACTIONS 2510 [anon_sym_SEMI; anon_sym_COMMA];
   ACTIONS 2512 [anon_sym_LBRACK]; ACTIONS 2515 [anon_sym_LPAREN];
   ACTIONS 2510 [aux_sym__literalString_token1; anon_sym_POUND];
   ACTIONS 2515 [aux_sym__literalInt_token1]; ACTIONS 2510 [aux_sym__literalInt_token2;
   aux_sym__literalInt_token3]; ACTIONS 2515 [aux_sym__literalFloat_token1];
   ACTIONS 2517 [aux_sym_ppUsesBlock_token1]; ACTIONS 2510 [aux_sym_ppUsesBlock_token2;
   aux_sym_ppUsesBlock_token3]; ACTIONS 2515 [sym_kAdd; sym_kSub]; ACTIONS 2510 [sym_kAt;
   sym_kTrue; sym_kFalse]; ACTIONS 3 [sym__space]; ACTIONS 5 [sym_ppDirective];
   ACTIONS 3 [sym_comment]; ACTIONS 2510 [sym_ppFragmentExpr; sym__literalStringMultiline;
   sym_identifier]; ACTIONS 2520 [sym_kDefault; sym_kNodefault]; ACTIONS 2523 [sym_kDispId];
   ACTIONS 2510 [sym_kGeneric; sym_kSpecialize; sym_kOperator]; ACTIONS 2526 [sym_kPublic];
   ACTIONS 2510 [sym_kForward]; ACTIONS 2520 [sym_kStatic; sym_kVirtual; sym_kAbstract;
   sym_kDynamic; sym_kOverride; sym_kOverload; sym_kReintroduce; sym_kStdcall; sym_kCdecl;
   sym_kCppdecl; sym_kPascal; sym_kRegister; sym_kMwpascal]; ACTIONS 2510 [sym_kExternal];
   ACTIONS 2529 [sym_kMessage]; ACTIONS 2532 [sym_kDeprecated]; ACTIONS 2520 [sym_kExperimental;
   sym_kPlatform; sym_kUnimplemented; sym_kCvar]; ACTIONS 2535 [sym_kExport];
   ACTIONS 2520 [sym_kFar; sym_kNear; sym_kSafecall; sym_kAssembler; sym_kNostackframe;
   sym_kInterrupt; sym_kNoreturn; sym_kIocheck; sym_kLocal; sym_kHardfloat; sym_kSoftfloat;
   sym_kMs_abi_default; sym_kMs_abi_cdecl; sym_kSaveregisters; sym_kSysv_abi_default;
   sym_kSysv_abi_cdecl; sym_kVectorcall; sym_kVarargs; sym_kWinapi]; ACTIONS 2538 [sym_kAlias];
   ACTIONS 2510 [sym_kAsm; sym_kBegin; sym_kCase; sym_kClass; sym_kConst; sym_kConstructor;
   sym_kDestructor; sym_kExports; sym_kFor; sym_kFunction; sym_kGoto; sym_kIf; sym_kInherited];
   ACTIONS 1016 [sym_kInline]; ACTIONS 2510 [sym_kLabel; sym_kNil; sym_kNot; sym_kProcedure;
   sym_kProperty; sym_kRaise; sym_kRepeat; sym_kResourcestring; sym_kString; sym_kThreadvar;
   sym_kTry; sym_kType; sym_kUses; sym_kVar; sym_kWhile; sym_kWith]].

(** State 369. *)
Definition ts_parse_table_369 : parse_row :=
  [STATE 6213 [sym_if]; STATE 6327 [sym_ifElse; sym_while; sym_repeat; sym_for; sym_foreach;
   sym_try; sym_case; sym_block; sym_asm; sym_with; sym_raise; sym_statement; sym_goto;
   sym__statement]; STATE 15991 [sym_ifTr; sym_ifElseTr; sym_whileTr; sym_repeatTr; sym_forTr;
   sym_foreachTr; sym_tryTr; sym_caseTr]; STATE 14251 [sym_blockTr]; STATE 15991 [sym_asmTr;
   sym_withTr; sym_raiseTr; sym_statementTr; sym_gotoTr; sym__statementTr];
   STATE 13915 [sym_assignment]; STATE 11785 [sym_varAssignDef]; STATE 13915 [sym_varDef;
   sym_constDef]; STATE 6166 [sym_label]; STATE 15991 [sym__statementsTr];
   STATE 15885 [sym_statementsTr]; STATE 8019 [sym__expr; sym_exprConditional];
   STATE 7478 [sym__ref; sym_lambda; sym_inherited; sym_exprDot; sym_exprDeref; sym_exprAs;
   sym_exprTpl; sym_exprSubscript; sym_exprCall]; STATE 8019 [sym_exprBinary; sym_exprUnary];
   STATE 7478 [sym_exprParens; sym_exprBrackets; sym__literal; sym_literalString];
   STATE 6664 [sym__literalString; sym_literalChar]; STATE 7478 [sym_literalNumber];
   STATE 7742 [sym__literalInt; sym__literalFloat]; STATE 1380 [sym__ppIf];
   STATE 6327 [sym__ppStatementBlock]; STATE 11840 [aux_sym_labeledStatement_repeat1];
   STATE 863 [aux_sym__statementsTr_repeat1]; STATE 6664 [aux_sym_literalString_repeat1];
   ACTIONS 397 [anon_sym_SEMI]; ACTIONS 399 [anon_sym_LBRACK]; ACTIONS 401 [anon_sym_LPAREN];
   ACTIONS 403 [aux_sym__literalString_token1]; ACTIONS 405 [anon_sym_POUND];
   ACTIONS 407 [aux_sym__literalInt_token1]; ACTIONS 409 [aux_sym__literalInt_token2;
   aux_sym__literalInt_token3]; ACTIONS 407 [aux_sym__literalFloat_token1];
   ACTIONS 411 [aux_sym_ppUsesBlock_token1]; ACTIONS 413 [sym_kAdd; sym_kSub];
   ACTIONS 415 [sym_kAt]; ACTIONS 417 [sym_kTrue; sym_kFalse]; ACTIONS 419 [sym_labelNumber];
   ACTIONS 3 [sym__space]; ACTIONS 5 [sym_ppDirective]; ACTIONS 3 [sym_comment];
   ACTIONS 417 [sym_ppFragmentExpr]; ACTIONS 397 [sym_ppFragmentStmt];
   ACTIONS 403 [sym__literalStringMultiline]; ACTIONS 421 [sym_identifier];
   ACTIONS 423 [sym_kSpecialize]; ACTIONS 427 [sym_kAsm]; ACTIONS 429 [sym_kBegin];
   ACTIONS 431 [sym_kCase]; ACTIONS 433 [sym_kConst]; ACTIONS 2541 [sym_kEnd];
   ACTIONS 437 [sym_kFor]; ACTIONS 439 [sym_kFunction]; ACTIONS 441 [sym_kGoto];
   ACTIONS 443 [sym_kIf]; ACTIONS 445 [sym_kInherited]; ACTIONS 417 [sym_kNil];
   ACTIONS 415 [sym_kNot]; ACTIONS 439 [sym_kProcedure]; ACTIONS 447 [sym_kRaise];
   ACTIONS 449 [sym_kRepeat]; ACTIONS 451 [sym_kString]; ACTIONS 453 [sym_kTry];
   ACTIONS 455 [sym_kVar]; ACTIONS 457 [sym_kWhile]; ACTIONS 459 [sym_kWith]].

(** State 370. *)
Definition ts_parse_table_370 : parse_row :=
  [STATE 2899 [sym__ppIf]; STATE 996 [sym__procAttributeNoExt];
   STATE 1005 [sym__procAttributesPp]; STATE 15262 [sym_procAttribute];
   STATE 183 [aux_sym__declProc_repeat1]; ACTIONS 2543 [anon_sym_SEMI; anon_sym_COMMA];
   ACTIONS 2545 [anon_sym_LBRACK]; ACTIONS 2548 [anon_sym_LPAREN];
   ACTIONS 2543 [aux_sym__literalString_token1; anon_sym_POUND];
   ACTIONS 2548 [aux_sym__literalInt_token1]; ACTIONS 2543 [aux_sym__literalInt_token2;
   aux_sym__literalInt_token3]; ACTIONS 2548 [aux_sym__literalFloat_token1];
   ACTIONS 2550 [aux_sym_ppUsesBlock_token1]; ACTIONS 2543 [aux_sym_ppUsesBlock_token2;
   aux_sym_ppUsesBlock_token3]; ACTIONS 2548 [sym_kAdd; sym_kSub]; ACTIONS 2543 [sym_kAt;
   sym_kTrue; sym_kFalse]; ACTIONS 3 [sym__space]; ACTIONS 5 [sym_ppDirective];
   ACTIONS 3 [sym_comment]; ACTIONS 2543 [sym_ppFragmentExpr; sym__literalStringMultiline;
   sym_identifier]; ACTIONS 2553 [sym_kDefault; sym_kNodefault]; ACTIONS 2556 [sym_kDispId];
   ACTIONS 2543 [sym_kGeneric; sym_kSpecialize; sym_kOperator]; ACTIONS 2559 [sym_kPublic];
   ACTIONS 2543 [sym_kForward]; ACTIONS 2553 [sym_kStatic; sym_kVirtual; sym_kAbstract;
   sym_kDynamic; sym_kOverride; sym_kOverload; sym_kReintroduce; sym_kStdcall; sym_kCdecl;
   sym_kCppdecl; sym_kPascal; sym_kRegister; sym_kMwpascal]; ACTIONS 2543 [sym_kExternal];
   ACTIONS 2562 [sym_kMessage]; ACTIONS 2565 [sym_kDeprecated]; ACTIONS 2553 [sym_kExperimental;
   sym_kPlatform; sym_kUnimplemented; sym_kCvar]; ACTIONS 2568 [sym_kExport];
   ACTIONS 2553 [sym_kFar; sym_kNear; sym_kSafecall; sym_kAssembler; sym_kNostackframe;
   sym_kInterrupt; sym_kNoreturn; sym_kIocheck; sym_kLocal; sym_kHardfloat; sym_kSoftfloat;
   sym_kMs_abi_default; sym_kMs_abi_cdecl; sym_kSaveregisters; sym_kSysv_abi_default;
   sym_kSysv_abi_cdecl; sym_kVectorcall; sym_kVarargs; sym_kWinapi]; ACTIONS 2571 [sym_kAlias];
   ACTIONS 2543 [sym_kAsm; sym_kBegin; sym_kCase; sym_kClass; sym_kConst; sym_kConstructor;
   sym_kDestructor; sym_kExports; sym_kFor; sym_kFunction; sym_kGoto; sym_kIf; sym_kInherited];
   ACTIONS 1016 [sym_kInline]; ACTIONS 2543 [sym_kLabel; sym_kNil; sym_kNot; sym_kProcedure;
   sym_kProperty; sym_kRaise; sym_kRepeat; sym_kResourcestring; sym_kString; sym_kThreadvar;
   sym_kTry; sym_kType; sym_kUses; sym_kVar; sym_kWhile; sym_kWith]].

(** State 371. *)
Definition ts_parse_table_371 : parse_row :=
  [STATE 6213 [sym_if]; STATE 6327 [sym_ifElse; sym_while; sym_repeat; sym_for; sym_foreach;
   sym_try; sym_case; sym_block; sym_asm; sym_with; sym_raise; sym_statement; sym_goto;
   sym__statement]; STATE 15991 [sym_ifTr; sym_ifElseTr; sym_whileTr; sym_repeatTr; sym_forTr;
   sym_foreachTr; sym_tryTr; sym_caseTr]; STATE 14251 [sym_blockTr]; STATE 15991 [sym_asmTr;
   sym_withTr; sym_raiseTr; sym_statementTr; sym_gotoTr; sym__statementTr];
   STATE 13915 [sym_assignment]; STATE 11785 [sym_varAssignDef]; STATE 13915 [sym_varDef;
   sym_constDef]; STATE 6166 [sym_label]; STATE 15991 [sym__statementsTr];
   STATE 15936 [sym_statementsTr]; STATE 8019 [sym__expr; sym_exprConditional];
   STATE 7478 [sym__ref; sym_lambda; sym_inherited; sym_exprDot; sym_exprDeref; sym_exprAs;
   sym_exprTpl; sym_exprSubscript; sym_exprCall]; STATE 8019 [sym_exprBinary; sym_exprUnary];
   STATE 7478 [sym_exprParens; sym_exprBrackets; sym__literal; sym_literalString];
   STATE 6664 [sym__literalString; sym_literalChar]; STATE 7478 [sym_literalNumber];
   STATE 7742 [sym__literalInt; sym__literalFloat]; STATE 1380 [sym__ppIf];
   STATE 6327 [sym__ppStatementBlock]; STATE 11840 [aux_sym_labeledStatement_repeat1];
   STATE 863 [aux_sym__statementsTr_repeat1]; STATE 6664 [aux_sym_literalString_repeat1];
   ACTIONS 397 [anon_sym_SEMI]; ACTIONS 399 [anon_sym_LBRACK]; ACTIONS 401 [anon_sym_LPAREN];
   ACTIONS 403 [aux_sym__literalString_token1]; ACTIONS 405 [anon_sym_POUND];
   ACTIONS 407 [aux_sym__literalInt_token1]; ACTIONS 409 [aux_sym__literalInt_token2;
   aux_sym__literalInt_token3]; ACTIONS 407 [aux_sym__literalFloat_token1];
   ACTIONS 411 [aux_sym_ppUsesBlock_token1]; ACTIONS 413 [sym_kAdd; sym_kSub];
   ACTIONS 415 [sym_kAt]; ACTIONS 417 [sym_kTrue; sym_kFalse]; ACTIONS 419 [sym_labelNumber];
   ACTIONS 3 [sym__space]; ACTIONS 5 [sym_ppDirective]; ACTIONS 3 [sym_comment];
   ACTIONS 417 [sym_ppFragmentExpr]; ACTIONS 397 [sym_ppFragmentStmt];
   ACTIONS 403 [sym__literalStringMultiline]; ACTIONS 421 [sym_identifier];
   ACTIONS 423 [sym_kSpecialize]; ACTIONS 427 [sym_kAsm]; ACTIONS 429 [sym_kBegin];
   ACTIONS 431 [sym_kCase]; ACTIONS 433 [sym_kConst]; ACTIONS 2574 [sym_kEnd];
   ACTIONS 437 [sym_kFor]; ACTIONS 439 [sym_kFunction]; ACTIONS 441 [sym_kGoto];
   ACTIONS 443 [sym_kIf]; ACTIONS 445 [sym_kInherited]; ACTIONS 417 [sym_kNil];
   ACTIONS 415 [sym_kNot]; ACTIONS 439 [sym_kProcedure]; ACTIONS 447 [sym_kRaise];
   ACTIONS 449 [sym_kRepeat]; ACTIONS 451 [sym_kString]; ACTIONS 453 [sym_kTry];
   ACTIONS 455 [sym_kVar]; ACTIONS 457 [sym_kWhile]; ACTIONS 459 [sym_kWith]].

(** State 372. *)
Definition ts_parse_table_372 : parse_row :=
  [STATE 6213 [sym_if]; STATE 6327 [sym_ifElse; sym_while; sym_repeat; sym_for; sym_foreach;
   sym_try; sym_case; sym_block; sym_asm; sym_with; sym_raise; sym_statement; sym_goto;
   sym__statement]; STATE 15955 [sym_ifTr; sym_ifElseTr; sym_whileTr; sym_repeatTr; sym_forTr;
   sym_foreachTr; sym_tryTr; sym_caseTr]; STATE 14251 [sym_blockTr]; STATE 15955 [sym_asmTr;
   sym_withTr; sym_raiseTr; sym_statementTr; sym_gotoTr; sym__statementTr];
   STATE 13915 [sym_assignment]; STATE 11785 [sym_varAssignDef]; STATE 13915 [sym_varDef;
   sym_constDef]; STATE 6166 [sym_label]; STATE 15955 [sym__statementsTr]; STATE 8019 [sym__expr;
   sym_exprConditional]; STATE 7478 [sym__ref; sym_lambda; sym_inherited; sym_exprDot;
   sym_exprDeref; sym_exprAs; sym_exprTpl; sym_exprSubscript; sym_exprCall];
   STATE 8019 [sym_exprBinary; sym_exprUnary]; STATE 7478 [sym_exprParens; sym_exprBrackets;
   sym__literal; sym_literalString]; STATE 6664 [sym__literalString; sym_literalChar];
   STATE 7478 [sym_literalNumber]; STATE 7742 [sym__literalInt; sym__literalFloat];
   STATE 1380 [sym__ppIf]; STATE 6327 [sym__ppStatementBlock];
   STATE 11840 [aux_sym_labeledStatement_repeat1]; STATE 863 [aux_sym__statementsTr_repeat1];
   STATE 6664 [aux_sym_literalString_repeat1]; ACTIONS 397 [anon_sym_SEMI];
   ACTIONS 2576 [anon_sym_COLON]; ACTIONS 399 [anon_sym_LBRACK]; ACTIONS 401 [anon_sym_LPAREN];
   ACTIONS 403 [aux_sym__literalString_token1]; ACTIONS 405 [anon_sym_POUND];
   ACTIONS 407 [aux_sym__literalInt_token1]; ACTIONS 409 [aux_sym__literalInt_token2;
   aux_sym__literalInt_token3]; ACTIONS 407 [aux_sym__literalFloat_token1];
   ACTIONS 411 [aux_sym_ppUsesBlock_token1]; ACTIONS 413 [sym_kAdd; sym_kSub];
   ACTIONS 415 [sym_kAt]; ACTIONS 417 [sym_kTrue; sym_kFalse]; ACTIONS 419 [sym_labelNumber];
   ACTIONS 3 [sym__space]; ACTIONS 5 [sym_ppDirective]; ACTIONS 3 [sym_comment];
   ACTIONS 417 [sym_ppFragmentExpr]; ACTIONS 397 [sym_ppFragmentStmt];
   ACTIONS 403 [sym__literalStringMultiline]; ACTIONS 421 [sym_identifier];
   ACTIONS 423 [sym_kSpecialize]; ACTIONS 427 [sym_kAsm]; ACTIONS 429 [sym_kBegin];
   ACTIONS 431 [sym_kCase]; ACTIONS 433 [sym_kConst]; ACTIONS 2578 [sym_kEnd];
   ACTIONS 437 [sym_kFor]; ACTIONS 439 [sym_kFunction]; ACTIONS 441 [sym_kGoto];
   ACTIONS 443 [sym_kIf]; ACTIONS 445 [sym_kInherited]; ACTIONS 417 [sym_kNil];
   ACTIONS 415 [sym_kNot]; ACTIONS 439 [sym_kProcedure]; ACTIONS 447 [sym_kRaise];
   ACTIONS 449 [sym_kRepeat]; ACTIONS 451 [sym_kString]; ACTIONS 453 [sym_kTry];
   ACTIONS 455 [sym_kVar]; ACTIONS 457 [sym_kWhile]; ACTIONS 459 [sym_kWith]].

(** State 373. *)
Definition ts_parse_table_373 : parse_row :=
  [STATE 6213 [sym_if]; STATE 6327 [sym_ifElse; sym_while; sym_repeat; sym_for; sym_foreach;
   sym_try; sym_case; sym_block; sym_asm; sym_with; sym_raise; sym_statement; sym_goto;
   sym__statement]; STATE 15967 [sym_ifTr; sym_ifElseTr; sym_whileTr; sym_repeatTr; sym_forTr;
   sym_foreachTr; sym_tryTr; sym_caseTr]; STATE 14251 [sym_blockTr]; STATE 15967 [sym_asmTr;
   sym_withTr; sym_raiseTr; sym_statementTr; sym_gotoTr; sym__statementTr];
   STATE 13915 [sym_assignment]; STATE 11785 [sym_varAssignDef]; STATE 13915 [sym_varDef;
   sym_constDef]; STATE 6166 [sym_label]; STATE 15967 [sym__statementsTr]; STATE 8019 [sym__expr;
   sym_exprConditional]; STATE 7478 [sym__ref; sym_lambda; sym_inherited; sym_exprDot;
   sym_exprDeref; sym_exprAs; sym_exprTpl; sym_exprSubscript; sym_exprCall];
   STATE 8019 [sym_exprBinary; sym_exprUnary]; STATE 7478 [sym_exprParens; sym_exprBrackets;
   sym__literal; sym_literalString]; STATE 6664 [sym__literalString; sym_literalChar];
   STATE 7478 [sym_literalNumber]; STATE 7742 [sym__literalInt; sym__literalFloat];
   STATE 1380 [sym__ppIf]; STATE 6327 [sym__ppStatementBlock];
   STATE 11840 [aux_sym_labeledStatement_repeat1]; STATE 863 [aux_sym__statementsTr_repeat1];
   STATE 6664 [aux_sym_literalString_repeat1]; ACTIONS 397 [anon_sym_SEMI];
   ACTIONS 2580 [anon_sym_COLON]; ACTIONS 399 [anon_sym_LBRACK]; ACTIONS 401 [anon_sym_LPAREN];
   ACTIONS 403 [aux_sym__literalString_token1]; ACTIONS 405 [anon_sym_POUND];
   ACTIONS 407 [aux_sym__literalInt_token1]; ACTIONS 409 [aux_sym__literalInt_token2;
   aux_sym__literalInt_token3]; ACTIONS 407 [aux_sym__literalFloat_token1];
   ACTIONS 411 [aux_sym_ppUsesBlock_token1]; ACTIONS 413 [sym_kAdd; sym_kSub];
   ACTIONS 415 [sym_kAt]; ACTIONS 417 [sym_kTrue; sym_kFalse]; ACTIONS 419 [sym_labelNumber];
   ACTIONS 3 [sym__space]; ACTIONS 5 [sym_ppDirective]; ACTIONS 3 [sym_comment];
   ACTIONS 417 [sym_ppFragmentExpr]; ACTIONS 397 [sym_ppFragmentStmt];
   ACTIONS 403 [sym__literalStringMultiline]; ACTIONS 421 [sym_identifier];
   ACTIONS 423 [sym_kSpecialize]; ACTIONS 427 [sym_kAsm]; ACTIONS 429 [sym_kBegin];
   ACTIONS 431 [sym_kCase]; ACTIONS 433 [sym_kConst]; ACTIONS 2582 [sym_kEnd];
   ACTIONS 437 [sym_kFor]; ACTIONS 439 [sym_kFunction]; ACTIONS 441 [sym_kGoto];
   ACTIONS 443 [sym_kIf]; ACTIONS 445 [sym_kInherited]; ACTIONS 417 [sym_kNil];
   ACTIONS 415 [sym_kNot]; ACTIONS 439 [sym_kProcedure]; ACTIONS 447 [sym_kRaise];
   ACTIONS 449 [sym_kRepeat]; ACTIONS 451 [sym_kString]; ACTIONS 453 [sym_kTry];
   ACTIONS 455 [sym_kVar]; ACTIONS 457 [sym_kWhile]; ACTIONS 459 [sym_kWith]].

(** State 374. *)
Definition ts_parse_table_374 : parse_row :=
  [STATE 6213 [sym_if]; STATE 6327 [sym_ifElse; sym_while; sym_repeat; sym_for; sym_foreach;
   sym_try; sym_case; sym_block; sym_asm; sym_with; sym_raise; sym_statement; sym_goto;
   sym__statement]; STATE 15974 [sym_ifTr; sym_ifElseTr; sym_whileTr; sym_repeatTr; sym_forTr;
   sym_foreachTr; sym_tryTr; sym_caseTr]; STATE 14251 [sym_blockTr]; STATE 15974 [sym_asmTr;
   sym_withTr; sym_raiseTr; sym_statementTr; sym_gotoTr; sym__statementTr];
   STATE 13915 [sym_assignment]; STATE 11785 [sym_varAssignDef]; STATE 13915 [sym_varDef;
   sym_constDef]; STATE 6166 [sym_label]; STATE 15974 [sym__statementsTr]; STATE 8019 [sym__expr;
   sym_exprConditional]; STATE 7478 [sym__ref; sym_lambda; sym_inherited; sym_exprDot;
   sym_exprDeref; sym_exprAs; sym_exprTpl; sym_exprSubscript; sym_exprCall];
   STATE 8019 [sym_exprBinary; sym_exprUnary]; STATE 7478 [sym_exprParens; sym_exprBrackets;
   sym__literal; sym_literalString]; STATE 6664 [sym__literalString; sym_literalChar];
   STATE 7478 [sym_literalNumber]; STATE 7742 [sym__literalInt; sym__literalFloat];
   STATE 1380 [sym__ppIf]; STATE 6327 [sym__ppStatementBlock];
   STATE 11840 [aux_sym_labeledStatement_repeat1]; STATE 863 [aux_sym__statementsTr_repeat1];
   STATE 6664 [aux_sym_literalString_repeat1]; ACTIONS 397 [anon_sym_SEMI];
   ACTIONS 2584 [anon_sym_COLON]; ACTIONS 399 [anon_sym_LBRACK]; ACTIONS 401 [anon_sym_LPAREN];
   ACTIONS 403 [aux_sym__literalString_token1]; ACTIONS 405 [anon_sym_POUND];
   ACTIONS 407 [aux_sym__literalInt_token1]; ACTIONS 409 [aux_sym__literalInt_token2;
   aux_sym__literalInt_token3]; ACTIONS 407 [aux_sym__literalFloat_token1];
   ACTIONS 411 [aux_sym_ppUsesBlock_token1]; ACTIONS 413 [sym_kAdd; sym_kSub];
   ACTIONS 415 [sym_kAt]; ACTIONS 417 [sym_kTrue; sym_kFalse]; ACTIONS 419 [sym_labelNumber];
   ACTIONS 3 [sym__space]; ACTIONS 5 [sym_ppDirective]; ACTIONS 3 [sym_comment];
   ACTIONS 417 [sym_ppFragmentExpr]; ACTIONS 397 [sym_ppFragmentStmt];
   ACTIONS 403 [sym__literalStringMultiline]; ACTIONS 421 [sym_identifier];
   ACTIONS 423 [sym_kSpecialize]; ACTIONS 427 [sym_kAsm]; ACTIONS 429 [sym_kBegin];
   ACTIONS 431 [sym_kCase]; ACTIONS 433 [sym_kConst]; ACTIONS 2586 [sym_kEnd];
   ACTIONS 437 [sym_kFor]; ACTIONS 439 [sym_kFunction]; ACTIONS 441 [sym_kGoto];
   ACTIONS 443 [sym_kIf]; ACTIONS 445 [sym_kInherited]; ACTIONS 417 [sym_kNil];
   ACTIONS 415 [sym_kNot]; ACTIONS 439 [sym_kProcedure]; ACTIONS 447 [sym_kRaise];
   ACTIONS 449 [sym_kRepeat]; ACTIONS 451 [sym_kString]; ACTIONS 453 [sym_kTry];
   ACTIONS 455 [sym_kVar]; ACTIONS 457 [sym_kWhile]; ACTIONS 459 [sym_kWith]].

(** State 375. *)
Definition ts_parse_table_375 : parse_row :=
  [STATE 6273 [sym_if]; STATE 6303 [sym_ifElse; sym_while; sym_repeat; sym_for; sym_foreach;
   sym_try; sym_case; sym_block; sym_asm; sym_with; sym_raise; sym_statement; sym_goto;
   sym__statement]; STATE 15875 [sym_ifTr; sym_ifElseTr; sym_whileTr; sym_repeatTr; sym_forTr;
   sym_foreachTr; sym_tryTr; sym_caseTr]; STATE 14967 [sym_blockTr]; STATE 15875 [sym_asmTr;
   sym_withTr; sym_raiseTr; sym_statementTr; sym_gotoTr; sym__statementTr];
   STATE 13420 [sym_assignment]; STATE 11684 [sym_varAssignDef]; STATE 13420 [sym_varDef;
   sym_constDef]; STATE 6307 [sym_label]; STATE 15875 [sym__statementsTr];
   STATE 14120 [sym_statementsTr]; STATE 8128 [sym__expr; sym_exprConditional];
   STATE 7533 [sym__ref; sym_lambda; sym_inherited; sym_exprDot; sym_exprDeref; sym_exprAs;
   sym_exprTpl; sym_exprSubscript; sym_exprCall]; STATE 8128 [sym_exprBinary; sym_exprUnary];
   STATE 7533 [sym_exprParens; sym_exprBrackets; sym__literal; sym_literalString];
   STATE 6915 [sym__literalString; sym_literalChar]; STATE 7533 [sym_literalNumber];
   STATE 7570 [sym__literalInt; sym__literalFloat]; STATE 1383 [sym__ppIf];
   STATE 6303 [sym__ppStatementBlock]; STATE 11951 [aux_sym_labeledStatement_repeat1];
   STATE 860 [aux_sym__statementsTr_repeat1]; STATE 6915 [aux_sym_literalString_repeat1];
   ACTIONS 925 [anon_sym_SEMI]; ACTIONS 927 [anon_sym_LBRACK]; ACTIONS 929 [anon_sym_LPAREN];
   ACTIONS 931 [aux_sym__literalString_token1]; ACTIONS 933 [anon_sym_POUND];
   ACTIONS 935 [aux_sym__literalInt_token1]; ACTIONS 937 [aux_sym__literalInt_token2;
   aux_sym__literalInt_token3]; ACTIONS 935 [aux_sym__literalFloat_token1];
   ACTIONS 411 [aux_sym_ppUsesBlock_token1]; ACTIONS 939 [sym_kAdd; sym_kSub];
   ACTIONS 941 [sym_kAt]; ACTIONS 943 [sym_kTrue; sym_kFalse]; ACTIONS 945 [sym_labelNumber];
   ACTIONS 3 [sym__space]; ACTIONS 5 [sym_ppDirective]; ACTIONS 3 [sym_comment];
   ACTIONS 943 [sym_ppFragmentExpr]; ACTIONS 925 [sym_ppFragmentStmt];
   ACTIONS 931 [sym__literalStringMultiline]; ACTIONS 947 [sym_identifier];
   ACTIONS 949 [sym_kSpecialize]; ACTIONS 951 [sym_kAsm]; ACTIONS 953 [sym_kBegin];
   ACTIONS 955 [sym_kCase]; ACTIONS 957 [sym_kConst]; ACTIONS 959 [sym_kFor];
   ACTIONS 961 [sym_kFunction]; ACTIONS 963 [sym_kGoto]; ACTIONS 965 [sym_kIf];
   ACTIONS 967 [sym_kInherited]; ACTIONS 943 [sym_kNil]; ACTIONS 941 [sym_kNot];
   ACTIONS 961 [sym_kProcedure]; ACTIONS 969 [sym_kRaise]; ACTIONS 971 [sym_kRepeat];
   ACTIONS 973 [sym_kString]; ACTIONS 975 [sym_kTry]; ACTIONS 2588 [sym_kUntil];
   ACTIONS 979 [sym_kVar]; ACTIONS 981 [sym_kWhile]; ACTIONS 983 [sym_kWith]].

(** State 376. *)
Definition ts_parse_table_376 : parse_row :=
  [STATE 2899 [sym__ppIf]; STATE 996 [sym__procAttributeNoExt];
   STATE 1005 [sym__procAttributesPp]; STATE 15262 [sym_procAttribute];
   STATE 440 [aux_sym__declProc_repeat1]; ACTIONS 2590 [anon_sym_SEMI; anon_sym_COMMA];
   ACTIONS 2592 [anon_sym_LBRACK]; ACTIONS 2595 [anon_sym_LPAREN];
   ACTIONS 2590 [aux_sym__literalString_token1; anon_sym_POUND];
   ACTIONS 2595 [aux_sym__literalInt_token1]; ACTIONS 2590 [aux_sym__literalInt_token2;
   aux_sym__literalInt_token3]; ACTIONS 2595 [aux_sym__literalFloat_token1];
   ACTIONS 2597 [aux_sym_ppUsesBlock_token1]; ACTIONS 2590 [aux_sym_ppUsesBlock_token2;
   aux_sym_ppUsesBlock_token3]; ACTIONS 2595 [sym_kAdd; sym_kSub]; ACTIONS 2590 [sym_kAt;
   sym_kTrue; sym_kFalse]; ACTIONS 3 [sym__space]; ACTIONS 5 [sym_ppDirective];
   ACTIONS 3 [sym_comment]; ACTIONS 2590 [sym_ppFragmentExpr; sym__literalStringMultiline;
   sym_identifier]; ACTIONS 2600 [sym_kDefault; sym_kNodefault]; ACTIONS 2603 [sym_kDispId];
   ACTIONS 2590 [sym_kGeneric; sym_kSpecialize; sym_kOperator]; ACTIONS 2606 [sym_kPublic];
   ACTIONS 2590 [sym_kForward]; ACTIONS 2600 [sym_kStatic; sym_kVirtual; sym_kAbstract;
   sym_kDynamic; sym_kOverride; sym_kOverload; sym_kReintroduce; sym_kStdcall; sym_kCdecl;
   sym_kCppdecl; sym_kPascal; sym_kRegister; sym_kMwpascal]; ACTIONS 2590 [sym_kExternal];
   ACTIONS 2609 [sym_kMessage]; ACTIONS 2612 [sym_kDeprecated]; ACTIONS 2600 [sym_kExperimental;
   sym_kPlatform; sym_kUnimplemented; sym_kCvar]; ACTIONS 2615 [sym_kExport];
   ACTIONS 2600 [sym_kFar; sym_kNear; sym_kSafecall; sym_kAssembler; sym_kNostackframe;
   sym_kInterrupt; sym_kNoreturn; sym_kIocheck; sym_kLocal; sym_kHardfloat; sym_kSoftfloat;
   sym_kMs_abi_default; sym_kMs_abi_cdecl; sym_kSaveregisters; sym_kSysv_abi_default;
   sym_kSysv_abi_cdecl; sym_kVectorcall; sym_kVarargs; sym_kWinapi]; ACTIONS 2618 [sym_kAlias];
   ACTIONS 2590 [sym_kAsm; sym_kBegin; sym_kCase; sym_kClass; sym_kConst; sym_kConstructor;
   sym_kDestructor; sym_kExports; sym_kFor; sym_kFunction; sym_kGoto; sym_kIf; sym_kInherited];
   ACTIONS 1016 [sym_kInline]; ACTIONS 2590 [sym_kLabel; sym_kNil; sym_kNot; sym_kProcedure;
   sym_kProperty; sym_kRaise; sym_kRepeat; sym_kResourcestring; sym_kString; sym_kThreadvar;
   sym_kTry; sym_kType; sym_kUses; sym_kVar; sym_kWhile; sym_kWith]].

(** State 377. *)
Definition ts_parse_table_377 : parse_row :=
  [STATE 2899 [sym__ppIf]; STATE 996 [sym__procAttributeNoExt];
   STATE 1005 [sym__procAttributesPp]; STATE 15262 [sym_procAttribute];
   STATE 183 [aux_sym__declProc_repeat1]; ACTIONS 2621 [anon_sym_SEMI; anon_sym_COMMA];
   ACTIONS 2623 [anon_sym_LBRACK]; ACTIONS 2626 [anon_sym_LPAREN];
   ACTIONS 2621 [aux_sym__literalString_token1; anon_sym_POUND];
   ACTIONS 2626 [aux_sym__literalInt_token1]; ACTIONS 2621 [aux_sym__literalInt_token2;
   aux_sym__literalInt_token3]; ACTIONS 2626 [aux_sym__literalFloat_token1];
   ACTIONS 2628 [aux_sym_ppUsesBlock_token1]; ACTIONS 2621 [aux_sym_ppUsesBlock_token2;
   aux_sym_ppUsesBlock_token3]; ACTIONS 2626 [sym_kAdd; sym_kSub]; ACTIONS 2621 [sym_kAt;
   sym_kTrue; sym_kFalse]; ACTIONS 3 [sym__space]; ACTIONS 5 [sym_ppDirective];
   ACTIONS 3 [sym_comment]; ACTIONS 2621 [sym_ppFragmentExpr; sym__literalStringMultiline;
   sym_identifier]; ACTIONS 2631 [sym_kDefault; sym_kNodefault]; ACTIONS 2634 [sym_kDispId];
   ACTIONS 2621 [sym_kGeneric; sym_kSpecialize; sym_kOperator]; ACTIONS 2637 [sym_kPublic];
   ACTIONS 2621 [sym_kForward]; ACTIONS 2631 [sym_kStatic; sym_kVirtual; sym_kAbstract;
   sym_kDynamic; sym_kOverride; sym_kOverload; sym_kReintroduce; sym_kStdcall; sym_kCdecl;
   sym_kCppdecl; sym_kPascal; sym_kRegister; sym_kMwpascal]; ACTIONS 2621 [sym_kExternal];
   ACTIONS 2640 [sym_kMessage]; ACTIONS 2643 [sym_kDeprecated]; ACTIONS 2631 [sym_kExperimental;
   sym_kPlatform; sym_kUnimplemented; sym_kCvar]; ACTIONS 2646 [sym_kExport];
   ACTIONS 2631 [sym_kFar; sym_kNear; sym_kSafecall; sym_kAssembler; sym_kNostackframe;
   sym_kInterrupt; sym_kNoreturn; sym_kIocheck; sym_kLocal; sym_kHardfloat; sym_kSoftfloat;
   sym_kMs_abi_default; sym_kMs_abi_cdecl; sym_kSaveregisters; sym_kSysv_abi_default;
   sym_kSysv_abi_cdecl; sym_kVectorcall; sym_kVarargs; sym_kWinapi]; ACTIONS 2649 [sym_kAlias];
   ACTIONS 2621 [sym_kAsm; sym_kBegin; sym_kCase; sym_kClass; sym_kConst; sym_kConstructor;
   sym_kDestructor; sym_kExports; sym_kFor; sym_kFunction; sym_kGoto; sym_kIf; sym_kInherited];
   ACTIONS 1016 [sym_kInline]; ACTIONS 2621 [sym_kLabel; sym_kNil; sym_kNot; sym_kProcedure;
   sym_kProperty; sym_kRaise; sym_kRepeat; sym_kResourcestring; sym_kString; sym_kThreadvar;
   sym_kTry; sym_kType; sym_kUses; sym_kVar; sym_kWhile; sym_kWith]].

(** State 378. *)
Definition ts_parse_table_378 : parse_row :=
  [STATE 2899 [sym__ppIf]; STATE 996 [sym__procAttributeNoExt];
   STATE 1005 [sym__procAttributesPp]; STATE 15262 [sym_procAttribute];
   STATE 442 [aux_sym__declProc_repeat1]; ACTIONS 2652 [anon_sym_SEMI; anon_sym_COMMA];
   ACTIONS 2654 [anon_sym_LBRACK]; ACTIONS 2657 [anon_sym_LPAREN];
   ACTIONS 2652 [aux_sym__literalString_token1; anon_sym_POUND];
   ACTIONS 2657 [aux_sym__literalInt_token1]; ACTIONS 2652 [aux_sym__literalInt_token2;
   aux_sym__literalInt_token3]; ACTIONS 2657 [aux_sym__literalFloat_token1];
   ACTIONS 2659 [aux_sym_ppUsesBlock_token1]; ACTIONS 2652 [aux_sym_ppUsesBlock_token2;
   aux_sym_ppUsesBlock_token3]; ACTIONS 2657 [sym_kAdd; sym_kSub]; ACTIONS 2652 [sym_kAt;
   sym_kTrue; sym_kFalse]; ACTIONS 3 [sym__space]; ACTIONS 5 [sym_ppDirective];
   ACTIONS 3 [sym_comment]; ACTIONS 2652 [sym_ppFragmentExpr; sym__literalStringMultiline;
   sym_identifier]; ACTIONS 2662 [sym_kDefault; sym_kNodefault]; ACTIONS 2665 [sym_kDispId];
   ACTIONS 2652 [sym_kGeneric; sym_kSpecialize; sym_kOperator]; ACTIONS 2668 [sym_kPublic];
   ACTIONS 2652 [sym_kForward]; ACTIONS 2662 [sym_kStatic; sym_kVirtual; sym_kAbstract;
   sym_kDynamic; sym_kOverride; sym_kOverload; sym_kReintroduce; sym_kStdcall; sym_kCdecl;
   sym_kCppdecl; sym_kPascal; sym_kRegister; sym_kMwpascal]; ACTIONS 2652 [sym_kExternal];
   ACTIONS 2671 [sym_kMessage]; ACTIONS 2674 [sym_kDeprecated]; ACTIONS 2662 [sym_kExperimental;
   sym_kPlatform; sym_kUnimplemented; sym_kCvar]; ACTIONS 2677 [sym_kExport];
   ACTIONS 2662 [sym_kFar; sym_kNear; sym_kSafecall; sym_kAssembler; sym_kNostackframe;
   sym_kInterrupt; sym_kNoreturn; sym_kIocheck; sym_kLocal; sym_kHardfloat; sym_kSoftfloat;
   sym_kMs_abi_default; sym_kMs_abi_cdecl; sym_kSaveregisters; sym_kSysv_abi_default;
   sym_kSysv_abi_cdecl; sym_kVectorcall; sym_kVarargs; sym_kWinapi]; ACTIONS 2680 [sym_kAlias];
   ACTIONS 2652 [sym_kAsm; sym_kBegin; sym_kCase; sym_kClass; sym_kConst; sym_kConstructor;
   sym_kDestructor; sym_kExports; sym_kFor; sym_kFunction; sym_kGoto; sym_kIf; sym_kInherited];
   ACTIONS 1016 [sym_kInline]; ACTIONS 2652 [sym_kLabel; sym_kNil; sym_kNot; sym_kProcedure;
   sym_kProperty; sym_kRaise; sym_kRepeat; sym_kResourcestring; sym_kString; sym_kThreadvar;
   sym_kTry; sym_kType; sym_kUses; sym_kVar; sym_kWhile; sym_kWith]].

(** State 379. *)
Definition ts_parse_table_379 : parse_row :=
  [STATE 6213 [sym_if]; STATE 6327 [sym_ifElse; sym_while; sym_repeat; sym_for; sym_foreach;
   sym_try; sym_case; sym_block; sym_asm; sym_with; sym_raise; sym_statement; sym_goto;
   sym__statement]; STATE 15991 [sym_ifTr; sym_ifElseTr; sym_whileTr; sym_repeatTr; sym_forTr;
   sym_foreachTr; sym_tryTr; sym_caseTr]; STATE 14251 [sym_blockTr]; STATE 15991 [sym_asmTr;
   sym_withTr; sym_raiseTr; sym_statementTr; sym_gotoTr; sym__statementTr];
   STATE 13915 [sym_assignment]; STATE 11785 [sym_varAssignDef]; STATE 13915 [sym_varDef;
   sym_constDef]; STATE 6166 [sym_label]; STATE 15991 [sym__statementsTr];
   STATE 14176 [sym_statementsTr]; STATE 8019 [sym__expr; sym_exprConditional];
   STATE 7478 [sym__ref; sym_lambda; sym_inherited; sym_exprDot; sym_exprDeref; sym_exprAs;
   sym_exprTpl; sym_exprSubscript; sym_exprCall]; STATE 8019 [sym_exprBinary; sym_exprUnary];
   STATE 7478 [sym_exprParens; sym_exprBrackets; sym__literal; sym_literalString];
   STATE 6664 [sym__literalString; sym_literalChar]; STATE 7478 [sym_literalNumber];
   STATE 7742 [sym__literalInt; sym__literalFloat]; STATE 1380 [sym__ppIf];
   STATE 6327 [sym__ppStatementBlock]; STATE 11840 [aux_sym_labeledStatement_repeat1];
   STATE 863 [aux_sym__statementsTr_repeat1]; STATE 6664 [aux_sym_literalString_repeat1];
   ACTIONS 397 [anon_sym_SEMI]; ACTIONS 399 [anon_sym_LBRACK]; ACTIONS 401 [anon_sym_LPAREN];
   ACTIONS 403 [aux_sym__literalString_token1]; ACTIONS 405 [anon_sym_POUND];
   ACTIONS 407 [aux_sym__literalInt_token1]; ACTIONS 409 [aux_sym__literalInt_token2;
   aux_sym__literalInt_token3]; ACTIONS 407 [aux_sym__literalFloat_token1];
   ACTIONS 411 [aux_sym_ppUsesBlock_token1]; ACTIONS 413 [sym_kAdd; sym_kSub];
   ACTIONS 415 [sym_kAt]; ACTIONS 417 [sym_kTrue; sym_kFalse]; ACTIONS 419 [sym_labelNumber];
   ACTIONS 3 [sym__space]; ACTIONS 5 [sym_ppDirective]; ACTIONS 3 [sym_comment];
   ACTIONS 417 [sym_ppFragmentExpr]; ACTIONS 397 [sym_ppFragmentStmt];
   ACTIONS 403 [sym__literalStringMultiline]; ACTIONS 421 [sym_identifier];
   ACTIONS 423 [sym_kSpecialize]; ACTIONS 427 [sym_kAsm]; ACTIONS 429 [sym_kBegin];
   ACTIONS 431 [sym_kCase]; ACTIONS 433 [sym_kConst]; ACTIONS 2683 [sym_kEnd];
   ACTIONS 437 [sym_kFor]; ACTIONS 439 [sym_kFunction]; ACTIONS 441 [sym_kGoto];
   ACTIONS 443 [sym_kIf]; ACTIONS 445 [sym_kInherited]; ACTIONS 417 [sym_kNil];
   ACTIONS 415 [sym_kNot]; ACTIONS 439 [sym_kProcedure]; ACTIONS 447 [sym_kRaise];
   ACTIONS 449 [sym_kRepeat]; ACTIONS 451 [sym_kString]; ACTIONS 453 [sym_kTry];
   ACTIONS 455 [sym_kVar]; ACTIONS 457 [sym_kWhile]; ACTIONS 459 [sym_kWith]].

(** State 380. *)
Definition ts_parse_table_380 : parse_row :=
  [STATE 2899 [sym__ppIf]; STATE 996 [sym__procAttributeNoExt];
   STATE 1005 [sym__procAttributesPp]; STATE 15262 [sym_procAttribute];
   STATE 444 [aux_sym__declProc_repeat1]; ACTIONS 2685 [anon_sym_SEMI; anon_sym_COMMA];
   ACTIONS 2687 [anon_sym_LBRACK]; ACTIONS 2690 [anon_sym_LPAREN];
   ACTIONS 2685 [aux_sym__literalString_token1; anon_sym_POUND];
   ACTIONS 2690 [aux_sym__literalInt_token1]; ACTIONS 2685 [aux_sym__literalInt_token2;
   aux_sym__literalInt_token3]; ACTIONS 2690 [aux_sym__literalFloat_token1];
   ACTIONS 2692 [aux_sym_ppUsesBlock_token1]; ACTIONS 2685 [aux_sym_ppUsesBlock_token2;
   aux_sym_ppUsesBlock_token3]; ACTIONS 2690 [sym_kAdd; sym_kSub]; ACTIONS 2685 [sym_kAt;
   sym_kTrue; sym_kFalse]; ACTIONS 3 [sym__space]; ACTIONS 5 [sym_ppDirective];
   ACTIONS 3 [sym_comment]; ACTIONS 2685 [sym_ppFragmentExpr; sym__literalStringMultiline;
   sym_identifier]; ACTIONS 2695 [sym_kDefault; sym_kNodefault]; ACTIONS 2698 [sym_kDispId];
   ACTIONS 2685 [sym_kGeneric; sym_kSpecialize; sym_kOperator]; ACTIONS 2701 [sym_kPublic];
   ACTIONS 2685 [sym_kForward]; ACTIONS 2695 [sym_kStatic; sym_kVirtual; sym_kAbstract;
   sym_kDynamic; sym_kOverride; sym_kOverload; sym_kReintroduce; sym_kStdcall; sym_kCdecl;
   sym_kCppdecl; sym_kPascal; sym_kRegister; sym_kMwpascal]; ACTIONS 2685 [sym_kExternal];
   ACTIONS 2704 [sym_kMessage]; ACTIONS 2707 [sym_kDeprecated]; ACTIONS 2695 [sym_kExperimental;
   sym_kPlatform; sym_kUnimplemented; sym_kCvar]; ACTIONS 2710 [sym_kExport];
   ACTIONS 2695 [sym_kFar; sym_kNear; sym_kSafecall; sym_kAssembler; sym_kNostackframe;
   sym_kInterrupt; sym_kNoreturn; sym_kIocheck; sym_kLocal; sym_kHardfloat; sym_kSoftfloat;
   sym_kMs_abi_default; sym_kMs_abi_cdecl; sym_kSaveregisters; sym_kSysv_abi_default;
   sym_kSysv_abi_cdecl; sym_kVectorcall; sym_kVarargs; sym_kWinapi]; ACTIONS 2713 [sym_kAlias];
   ACTIONS 2685 [sym_kAsm; sym_kBegin; sym_kCase; sym_kClass; sym_kConst; sym_kConstructor;
   sym_kDestructor; sym_kExports; sym_kFor; sym_kFunction; sym_kGoto; sym_kIf; sym_kInherited];
   ACTIONS 1016 [sym_kInline]; ACTIONS 2685 [sym_kLabel; sym_kNil; sym_kNot; sym_kProcedure;
   sym_kProperty; sym_kRaise; sym_kRepeat; sym_kResourcestring; sym_kString; sym_kThreadvar;
   sym_kTry; sym_kType; sym_kUses; sym_kVar; sym_kWhile; sym_kWith]].

(** State 381. *)
Definition ts_parse_table_381 : parse_row :=
  [STATE 6213 [sym_if]; STATE 6327 [sym_ifElse; sym_while; sym_repeat; sym_for; sym_foreach;
   sym_try; sym_case; sym_block; sym_asm; sym_with; sym_raise; sym_statement; sym_goto;
   sym__statement]; STATE 15991 [sym_ifTr; sym_ifElseTr; sym_whileTr; sym_repeatTr; sym_forTr;
   sym_foreachTr; sym_tryTr; sym_caseTr]; STATE 14251 [sym_blockTr]; STATE 15991 [sym_asmTr;
   sym_withTr; sym_raiseTr; sym_statementTr; sym_gotoTr; sym__statementTr];
   STATE 13915 [sym_assignment]; STATE 11785 [sym_varAssignDef]; STATE 13915 [sym_varDef;
   sym_constDef]; STATE 6166 [sym_label]; STATE 15991 [sym__statementsTr];
   STATE 14211 [sym_statementsTr]; STATE 8019 [sym__expr; sym_exprConditional];
   STATE 7478 [sym__ref; sym_lambda; sym_inherited; sym_exprDot; sym_exprDeref; sym_exprAs;
   sym_exprTpl; sym_exprSubscript; sym_exprCall]; STATE 8019 [sym_exprBinary; sym_exprUnary];
   STATE 7478 [sym_exprParens; sym_exprBrackets; sym__literal; sym_literalString];
   STATE 6664 [sym__literalString; sym_literalChar]; STATE 7478 [sym_literalNumber];
   STATE 7742 [sym__literalInt; sym__literalFloat]; STATE 1380 [sym__ppIf];
   STATE 6327 [sym__ppStatementBlock]; STATE 11840 [aux_sym_labeledStatement_repeat1];
   STATE 863 [aux_sym__statementsTr_repeat1]; STATE 6664 [aux_sym_literalString_repeat1];
   ACTIONS 397 [anon_sym_SEMI]; ACTIONS 399 [anon_sym_LBRACK]; ACTIONS 401 [anon_sym_LPAREN];
   ACTIONS 403 [aux_sym__literalString_token1]; ACTIONS 405 [anon_sym_POUND];
   ACTIONS 407 [aux_sym__literalInt_token1]; ACTIONS 409 [aux_sym__literalInt_token2;
   aux_sym__literalInt_token3]; ACTIONS 407 [aux_sym__literalFloat_token1];
   ACTIONS 411 [aux_sym_ppUsesBlock_token1]; ACTIONS 413 [sym_kAdd; sym_kSub];
   ACTIONS 415 [sym_kAt]; ACTIONS 417 [sym_kTrue; sym_kFalse]; ACTIONS 419 [sym_labelNumber];
   ACTIONS 3 [sym__space]; ACTIONS 5 [sym_ppDirective]; ACTIONS 3 [sym_comment];
   ACTIONS 417 [sym_ppFragmentExpr]; ACTIONS 397 [sym_ppFragmentStmt];
   ACTIONS 403 [sym__literalStringMultiline]; ACTIONS 421 [sym_identifier];
   ACTIONS 423 [sym_kSpecialize]; ACTIONS 427 [sym_kAsm]; ACTIONS 429 [sym_kBegin];
   ACTIONS 431 [sym_kCase]; ACTIONS 433 [sym_kConst]; ACTIONS 2716 [sym_kEnd];
   ACTIONS 437 [sym_kFor]; ACTIONS 439 [sym_kFunction]; ACTIONS 441 [sym_kGoto];
   ACTIONS 443 [sym_kIf]; ACTIONS 445 [sym_kInherited]; ACTIONS 417 [sym_kNil];
   ACTIONS 415 [sym_kNot]; ACTIONS 439 [sym_kProcedure]; ACTIONS 447 [sym_kRaise];
   ACTIONS 449 [sym_kRepeat]; ACTIONS 451 [sym_kString]; ACTIONS 453 [sym_kTry];
   ACTIONS 455 [sym_kVar]; ACTIONS 457 [sym_kWhile]; ACTIONS 459 [sym_kWith]].

(** State 382. *)
Definition ts_parse_table_382 : parse_row :=
  [STATE 6213 [sym_if]; STATE 6327 [sym_ifElse; sym_while; sym_repeat; sym_for; sym_foreach;
   sym_try; sym_case; sym_block; sym_asm; sym_with; sym_raise; sym_statement; sym_goto;
   sym__statement]; STATE 14227 [sym_ifTr; sym_ifElseTr; sym_whileTr; sym_repeatTr; sym_forTr;
   sym_foreachTr; sym_tryTr; sym_caseTr]; STATE 14251 [sym_blockTr]; STATE 14227 [sym_asmTr;
   sym_withTr; sym_raiseTr; sym_statementTr; sym_gotoTr; sym__statementTr];
   STATE 13915 [sym_assignment]; STATE 11785 [sym_varAssignDef]; STATE 13915 [sym_varDef;
   sym_constDef]; STATE 6166 [sym_label]; STATE 14227 [sym__statementsTr]; STATE 8019 [sym__expr;
   sym_exprConditional]; STATE 7478 [sym__ref; sym_lambda; sym_inherited; sym_exprDot;
   sym_exprDeref; sym_exprAs; sym_exprTpl; sym_exprSubscript; sym_exprCall];
   STATE 8019 [sym_exprBinary; sym_exprUnary]; STATE 7478 [sym_exprParens; sym_exprBrackets;
   sym__literal; sym_literalString]; STATE 6664 [sym__literalString; sym_literalChar];
   STATE 7478 [sym_literalNumber]; STATE 7742 [sym__literalInt; sym__literalFloat];
   STATE 1380 [sym__ppIf]; STATE 6327 [sym__ppStatementBlock];
   STATE 11840 [aux_sym_labeledStatement_repeat1]; STATE 863 [aux_sym__statementsTr_repeat1];
   STATE 6664 [aux_sym_literalString_repeat1]; ACTIONS 397 [anon_sym_SEMI];
   ACTIONS 2718 [anon_sym_COLON]; ACTIONS 399 [anon_sym_LBRACK]; ACTIONS 401 [anon_sym_LPAREN];
   ACTIONS 403 [aux_sym__literalString_token1]; ACTIONS 405 [anon_sym_POUND];
   ACTIONS 407 [aux_sym__literalInt_token1]; ACTIONS 409 [aux_sym__literalInt_token2;
   aux_sym__literalInt_token3]; ACTIONS 407 [aux_sym__literalFloat_token1];
   ACTIONS 411 [aux_sym_ppUsesBlock_token1]; ACTIONS 413 [sym_kAdd; sym_kSub];
   ACTIONS 415 [sym_kAt]; ACTIONS 417 [sym_kTrue; sym_kFalse]; ACTIONS 419 [sym_labelNumber];
   ACTIONS 3 [sym__space]; ACTIONS 5 [sym_ppDirective]; ACTIONS 3 [sym_comment];
   ACTIONS 417 [sym_ppFragmentExpr]; ACTIONS 397 [sym_ppFragmentStmt];
   ACTIONS 403 [sym__literalStringMultiline]; ACTIONS 421 [sym_identifier];
   ACTIONS 423 [sym_kSpecialize]; ACTIONS 427 [sym_kAsm]; ACTIONS 429 [sym_kBegin];
   ACTIONS 431 [sym_kCase]; ACTIONS 433 [sym_kConst]; ACTIONS 2720 [sym_kEnd];
   ACTIONS 437 [sym_kFor]; ACTIONS 439 [sym_kFunction]; ACTIONS 441 [sym_kGoto];
   ACTIONS 443 [sym_kIf]; ACTIONS 445 [sym_kInherited]; ACTIONS 417 [sym_kNil];
   ACTIONS 415 [sym_kNot]; ACTIONS 439 [sym_kProcedure]; ACTIONS 447 [sym_kRaise];
   ACTIONS 449 [sym_kRepeat]; ACTIONS 451 [sym_kString]; ACTIONS 453 [sym_kTry];
   ACTIONS 455 [sym_kVar]; ACTIONS 457 [sym_kWhile]; ACTIONS 459 [sym_kWith]].

(** State 383. *)
Definition ts_parse_table_383 : parse_row :=
  [STATE 6213 [sym_if]; STATE 6327 [sym_ifElse; sym_while; sym_repeat; sym_for; sym_foreach;
   sym_try; sym_case; sym_block; sym_asm; sym_with; sym_raise; sym_statement; sym_goto;
   sym__statement]; STATE 14234 [sym_ifTr; sym_ifElseTr; sym_whileTr; sym_repeatTr; sym_forTr;
   sym_foreachTr; sym_tryTr; sym_caseTr]; STATE 14251 [sym_blockTr]; STATE 14234 [sym_asmTr;
   sym_withTr; sym_raiseTr; sym_statementTr; sym_gotoTr; sym__statementTr];
   STATE 13915 [sym_assignment]; STATE 11785 [sym_varAssignDef]; STATE 13915 [sym_varDef;
   sym_constDef]; STATE 6166 [sym_label]; STATE 14234 [sym__statementsTr]; STATE 8019 [sym__expr;
   sym_exprConditional]; STATE 7478 [sym__ref; sym_lambda; sym_inherited; sym_exprDot;
   sym_exprDeref; sym_exprAs; sym_exprTpl; sym_exprSubscript; sym_exprCall];
   STATE 8019 [sym_exprBinary; sym_exprUnary]; STATE 7478 [sym_exprParens; sym_exprBrackets;
   sym__literal; sym_literalString]; STATE 6664 [sym__literalString; sym_literalChar];
   STATE 7478 [sym_literalNumber]; STATE 7742 [sym__literalInt; sym__literalFloat];
   STATE 1380 [sym__ppIf]; STATE 6327 [sym__ppStatementBlock];
   STATE 11840 [aux_sym_labeledStatement_repeat1]; STATE 863 [aux_sym__statementsTr_repeat1];
   STATE 6664 [aux_sym_literalString_repeat1]; ACTIONS 397 [anon_sym_SEMI];
   ACTIONS 2722 [anon_sym_COLON]; ACTIONS 399 [anon_sym_LBRACK]; ACTIONS 401 [anon_sym_LPAREN];
   ACTIONS 403 [aux_sym__literalString_token1]; ACTIONS 405 [anon_sym_POUND];
   ACTIONS 407 [aux_sym__literalInt_token1]; ACTIONS 409 [aux_sym__literalInt_token2;
   aux_sym__literalInt_token3]; ACTIONS 407 [aux_sym__literalFloat_token1];
   ACTIONS 411 [aux_sym_ppUsesBlock_token1]; ACTIONS 413 [sym_kAdd; sym_kSub];
   ACTIONS 415 [sym_kAt]; ACTIONS 417 [sym_kTrue; sym_kFalse]; ACTIONS 419 [sym_labelNumber];
   ACTIONS 3 [sym__space]; ACTIONS 5 [sym_ppDirective]; ACTIONS 3 [sym_comment];
   ACTIONS 417 [sym_ppFragmentExpr]; ACTIONS 397 [sym_ppFragmentStmt];
   ACTIONS 403 [sym__literalStringMultiline]; ACTIONS 421 [sym_identifier];
   ACTIONS 423 [sym_kSpecialize]; ACTIONS 427 [sym_kAsm]; ACTIONS 429 [sym_kBegin];
   ACTIONS 431 [sym_kCase]; ACTIONS 433 [sym_kConst]; ACTIONS 2724 [sym_kEnd];
   ACTIONS 437 [sym_kFor]; ACTIONS 439 [sym_kFunction]; ACTIONS 441 [sym_kGoto];
   ACTIONS 443 [sym_kIf]; ACTIONS 445 [sym_kInherited]; ACTIONS 417 [sym_kNil];
   ACTIONS 415 [sym_kNot]; ACTIONS 439 [sym_kProcedure]; ACTIONS 447 [sym_kRaise];
   ACTIONS 449 [sym_kRepeat]; ACTIONS 451 [sym_kString]; ACTIONS 453 [sym_kTry];
   ACTIONS 455 [sym_kVar]; ACTIONS 457 [sym_kWhile]; ACTIONS 459 [sym_kWith]].

(** State 384. *)
Definition ts_parse_table_384 : parse_row :=
  [STATE 6213 [sym_if]; STATE 6327 [sym_ifElse; sym_while; sym_repeat; sym_for; sym_foreach;
   sym_try; sym_case; sym_block; sym_asm; sym_with; sym_raise; sym_statement; sym_goto;
   sym__statement]; STATE 14239 [sym_ifTr; sym_ifElseTr; sym_whileTr; sym_repeatTr; sym_forTr;
   sym_foreachTr; sym_tryTr; sym_caseTr]; STATE 14251 [sym_blockTr]; STATE 14239 [sym_asmTr;
   sym_withTr; sym_raiseTr; sym_statementTr; sym_gotoTr; sym__statementTr];
   STATE 13915 [sym_assignment]; STATE 11785 [sym_varAssignDef]; STATE 13915 [sym_varDef;
   sym_constDef]; STATE 6166 [sym_label]; STATE 14239 [sym__statementsTr]; STATE 8019 [sym__expr;
   sym_exprConditional]; STATE 7478 [sym__ref; sym_lambda; sym_inherited; sym_exprDot;
   sym_exprDeref; sym_exprAs; sym_exprTpl; sym_exprSubscript; sym_exprCall];
   STATE 8019 [sym_exprBinary; sym_exprUnary]; STATE 7478 [sym_exprParens; sym_exprBrackets;
   sym__literal; sym_literalString]; STATE 6664 [sym__literalString; sym_literalChar];
   STATE 7478 [sym_literalNumber]; STATE 7742 [sym__literalInt; sym__literalFloat];
   STATE 1380 [sym__ppIf]; STATE 6327 [sym__ppStatementBlock];
   STATE 11840 [aux_sym_labeledStatement_repeat1]; STATE 863 [aux_sym__statementsTr_repeat1];
   STATE 6664 [aux_sym_literalString_repeat1]; ACTIONS 397 [anon_sym_SEMI];
   ACTIONS 2726 [anon_sym_COLON]; ACTIONS 399 [anon_sym_LBRACK]; ACTIONS 401 [anon_sym_LPAREN];
   ACTIONS 403 [aux_sym__literalString_token1]; ACTIONS 405 [anon_sym_POUND];
   ACTIONS 407 [aux_sym__literalInt_token1]; ACTIONS 409 [aux_sym__literalInt_token2;
   aux_sym__literalInt_token3]; ACTIONS 407 [aux_sym__literalFloat_token1];
   ACTIONS 411 [aux_sym_ppUsesBlock_token1]; ACTIONS 413 [sym_kAdd; sym_kSub];
   ACTIONS 415 [sym_kAt]; ACTIONS 417 [sym_kTrue; sym_kFalse]; ACTIONS 419 [sym_labelNumber];
   ACTIONS 3 [sym__space]; ACTIONS 5 [sym_ppDirective]; ACTIONS 3 [sym_comment];
   ACTIONS 417 [sym_ppFragmentExpr]; ACTIONS 397 [sym_ppFragmentStmt];
   ACTIONS 403 [sym__literalStringMultiline]; ACTIONS 421 [sym_identifier];
   ACTIONS 423 [sym_kSpecialize]; ACTIONS 427 [sym_kAsm]; ACTIONS 429 [sym_kBegin];
   ACTIONS 431 [sym_kCase]; ACTIONS 433 [sym_kConst]; ACTIONS 2728 [sym_kEnd];
   ACTIONS 437 [sym_kFor]; ACTIONS 439 [sym_kFunction]; ACTIONS 441 [sym_kGoto];
   ACTIONS 443 [sym_kIf]; ACTIONS 445 [sym_kInherited]; ACTIONS 417 [sym_kNil];
   ACTIONS 415 [sym_kNot]; ACTIONS 439 [sym_kProcedure]; ACTIONS 447 [sym_kRaise];
   ACTIONS 449 [sym_kRepeat]; ACTIONS 451 [sym_kString]; ACTIONS 453 [sym_kTry];
   ACTIONS 455 [sym_kVar]; ACTIONS 457 [sym_kWhile]; ACTIONS 459 [sym_kWith]].

(** State 385. *)
Definition ts_parse_table_385 : parse_row :=
  [STATE 6273 [sym_if]; STATE 6303 [sym_ifElse; sym_while; sym_repeat; sym_for; sym_foreach;
   sym_try; sym_case; sym_block; sym_asm; sym_with; sym_raise; sym_statement; sym_goto;
   sym__statement]; STATE 15875 [sym_ifTr; sym_ifElseTr; sym_whileTr; sym_repeatTr; sym_forTr;
   sym_foreachTr; sym_tryTr; sym_caseTr]; STATE 14967 [sym_blockTr]; STATE 15875 [sym_asmTr;
   sym_withTr; sym_raiseTr; sym_statementTr; sym_gotoTr; sym__statementTr];
   STATE 13420 [sym_assignment]; STATE 11684 [sym_varAssignDef]; STATE 13420 [sym_varDef;
   sym_constDef]; STATE 6307 [sym_label]; STATE 15875 [sym__statementsTr];
   STATE 14269 [sym_statementsTr]; STATE 8128 [sym__expr; sym_exprConditional];
   STATE 7533 [sym__ref; sym_lambda; sym_inherited; sym_exprDot; sym_exprDeref; sym_exprAs;
   sym_exprTpl; sym_exprSubscript; sym_exprCall]; STATE 8128 [sym_exprBinary; sym_exprUnary];
   STATE 7533 [sym_exprParens; sym_exprBrackets; sym__literal; sym_literalString];
   STATE 6915 [sym__literalString; sym_literalChar]; STATE 7533 [sym_literalNumber];
   STATE 7570 [sym__literalInt; sym__literalFloat]; STATE 1383 [sym__ppIf];
   STATE 6303 [sym__ppStatementBlock]; STATE 11951 [aux_sym_labeledStatement_repeat1];
   STATE 860 [aux_sym__statementsTr_repeat1]; STATE 6915 [aux_sym_literalString_repeat1];
   ACTIONS 925 [anon_sym_SEMI]; ACTIONS 927 [anon_sym_LBRACK]; ACTIONS 929 [anon_sym_LPAREN];
   ACTIONS 931 [aux_sym__literalString_token1]; ACTIONS 933 [anon_sym_POUND];
   ACTIONS 935 [aux_sym__literalInt_token1]; ACTIONS 937 [aux_sym__literalInt_token2;
   aux_sym__literalInt_token3]; ACTIONS 935 [aux_sym__literalFloat_token1];
   ACTIONS 411 [aux_sym_ppUsesBlock_token1]; ACTIONS 939 [sym_kAdd; sym_kSub];
   ACTIONS 941 [sym_kAt]; ACTIONS 943 [sym_kTrue; sym_kFalse]; ACTIONS 945 [sym_labelNumber];
   ACTIONS 3 [sym__space]; ACTIONS 5 [sym_ppDirective]; ACTIONS 3 [sym_comment];
   ACTIONS 943 [sym_ppFragmentExpr]; ACTIONS 925 [sym_ppFragmentStmt];
   ACTIONS 931 [sym__literalStringMultiline]; ACTIONS 947 [sym_identifier];
   ACTIONS 949 [sym_kSpecialize]; ACTIONS 951 [sym_kAsm]; ACTIONS 953 [sym_kBegin];
   ACTIONS 955 [sym_kCase]; ACTIONS 957 [sym_kConst]; ACTIONS 959 [sym_kFor];
   ACTIONS 961 [sym_kFunction]; ACTIONS 963 [sym_kGoto]; ACTIONS 965 [sym_kIf];
   ACTIONS 967 [sym_kInherited]; ACTIONS 943 [sym_kNil]; ACTIONS 941 [sym_kNot];
   ACTIONS 961 [sym_kProcedure]; ACTIONS 969 [sym_kRaise]; ACTIONS 971 [sym_kRepeat];
   ACTIONS 973 [sym_kString]; ACTIONS 975 [sym_kTry]; ACTIONS 2730 [sym_kUntil];
   ACTIONS 979 [sym_kVar]; ACTIONS 981 [sym_kWhile]; ACTIONS 983 [sym_kWith]].

(** State 386. *)
Definition ts_parse_table_386 : parse_row :=
  [STATE 2899 [sym__ppIf]; STATE 996 [sym__procAttributeNoExt];
   STATE 1005 [sym__procAttributesPp]; STATE 15262 [sym_procAttribute];
   STATE 183 [aux_sym__declProc_repeat1]; ACTIONS 2732 [anon_sym_SEMI; anon_sym_COMMA];
   ACTIONS 2734 [anon_sym_LBRACK]; ACTIONS 2737 [anon_sym_LPAREN];
   ACTIONS 2732 [aux_sym__literalString_token1; anon_sym_POUND];
   ACTIONS 2737 [aux_sym__literalInt_token1]; ACTIONS 2732 [aux_sym__literalInt_token2;
   aux_sym__literalInt_token3]; ACTIONS 2737 [aux_sym__literalFloat_token1];
   ACTIONS 2739 [aux_sym_ppUsesBlock_token1]; ACTIONS 2732 [aux_sym_ppUsesBlock_token2;
   aux_sym_ppUsesBlock_token3]; ACTIONS 2737 [sym_kAdd; sym_kSub]; ACTIONS 2732 [sym_kAt;
   sym_kTrue; sym_kFalse]; ACTIONS 3 [sym__space]; ACTIONS 5 [sym_ppDirective];
   ACTIONS 3 [sym_comment]; ACTIONS 2732 [sym_ppFragmentExpr; sym__literalStringMultiline;
   sym_identifier]; ACTIONS 2742 [sym_kDefault; sym_kNodefault]; ACTIONS 2745 [sym_kDispId];
   ACTIONS 2732 [sym_kGeneric; sym_kSpecialize; sym_kOperator]; ACTIONS 2748 [sym_kPublic];
   ACTIONS 2732 [sym_kForward]; ACTIONS 2742 [sym_kStatic; sym_kVirtual; sym_kAbstract;
   sym_kDynamic; sym_kOverride; sym_kOverload; sym_kReintroduce; sym_kStdcall; sym_kCdecl;
   sym_kCppdecl; sym_kPascal; sym_kRegister; sym_kMwpascal]; ACTIONS 2732 [sym_kExternal];
   ACTIONS 2751 [sym_kMessage]; ACTIONS 2754 [sym_kDeprecated]; ACTIONS 2742 [sym_kExperimental;
   sym_kPlatform; sym_kUnimplemented; sym_kCvar]; ACTIONS 2757 [sym_kExport];
   ACTIONS 2742 [sym_kFar; sym_kNear; sym_kSafecall; sym_kAssembler; sym_kNostackframe;
   sym_kInterrupt; sym_kNoreturn; sym_kIocheck; sym_kLocal; sym_kHardfloat; sym_kSoftfloat;
   sym_kMs_abi_default; sym_kMs_abi_cdecl; sym_kSaveregisters; sym_kSysv_abi_default;
   sym_kSysv_abi_cdecl; sym_kVectorcall; sym_kVarargs; sym_kWinapi]; ACTIONS 2760 [sym_kAlias];
   ACTIONS 2732 [sym_kAsm; sym_kBegin; sym_kCase; sym_kClass; sym_kConst; sym_kConstructor;
   sym_kDestructor; sym_kExports; sym_kFor; sym_kFunction; sym_kGoto; sym_kIf; sym_kInherited];
   ACTIONS 1016 [sym_kInline]; ACTIONS 2732 [sym_kLabel; sym_kNil; sym_kNot; sym_kProcedure;
   sym_kProperty; sym_kRaise; sym_kRepeat; sym_kResourcestring; sym_kString; sym_kThreadvar;
   sym_kTry; sym_kType; sym_kUses; sym_kVar; sym_kWhile; sym_kWith]].

(** State 387. *)
Definition ts_parse_table_387 : parse_row :=
  [STATE 6213 [sym_if]; STATE 6327 [sym_ifElse; sym_while; sym_repeat; sym_for; sym_foreach;
   sym_try; sym_case; sym_block; sym_asm; sym_with; sym_raise; sym_statement; sym_goto;
   sym__statement]; STATE 15991 [sym_ifTr; sym_ifElseTr; sym_whileTr; sym_repeatTr; sym_forTr;
   sym_foreachTr; sym_tryTr; sym_caseTr]; STATE 14251 [sym_blockTr]; STATE 15991 [sym_asmTr;
   sym_withTr; sym_raiseTr; sym_statementTr; sym_gotoTr; sym__statementTr];
   STATE 13915 [sym_assignment]; STATE 11785 [sym_varAssignDef]; STATE 13915 [sym_varDef;
   sym_constDef]; STATE 6166 [sym_label]; STATE 15991 [sym__statementsTr];
   STATE 14319 [sym_statementsTr]; STATE 8019 [sym__expr; sym_exprConditional];
   STATE 7478 [sym__ref; sym_lambda; sym_inherited; sym_exprDot; sym_exprDeref; sym_exprAs;
   sym_exprTpl; sym_exprSubscript; sym_exprCall]; STATE 8019 [sym_exprBinary; sym_exprUnary];
   STATE 7478 [sym_exprParens; sym_exprBrackets; sym__literal; sym_literalString];
   STATE 6664 [sym__literalString; sym_literalChar]; STATE 7478 [sym_literalNumber];
   STATE 7742 [sym__literalInt; sym__literalFloat]; STATE 1380 [sym__ppIf];
   STATE 6327 [sym__ppStatementBlock]; STATE 11840 [aux_sym_labeledStatement_repeat1];
   STATE 863 [aux_sym__statementsTr_repeat1]; STATE 6664 [aux_sym_literalString_repeat1];
   ACTIONS 397 [anon_sym_SEMI]; ACTIONS 399 [anon_sym_LBRACK]; ACTIONS 401 [anon_sym_LPAREN];
   ACTIONS 403 [aux_sym__literalString_token1]; ACTIONS 405 [anon_sym_POUND];
   ACTIONS 407 [aux_sym__literalInt_token1]; ACTIONS 409 [aux_sym__literalInt_token2;
   aux_sym__literalInt_token3]; ACTIONS 407 [aux_sym__literalFloat_token1];
   ACTIONS 411 [aux_sym_ppUsesBlock_token1]; ACTIONS 413 [sym_kAdd; sym_kSub];
   ACTIONS 415 [sym_kAt]; ACTIONS 417 [sym_kTrue; sym_kFalse]; ACTIONS 419 [sym_labelNumber];
   ACTIONS 3 [sym__space]; ACTIONS 5 [sym_ppDirective]; ACTIONS 3 [sym_comment];
   ACTIONS 417 [sym_ppFragmentExpr]; ACTIONS 397 [sym_ppFragmentStmt];
   ACTIONS 403 [sym__literalStringMultiline]; ACTIONS 421 [sym_identifier];
   ACTIONS 423 [sym_kSpecialize]; ACTIONS 427 [sym_kAsm]; ACTIONS 429 [sym_kBegin];
   ACTIONS 431 [sym_kCase]; ACTIONS 433 [sym_kConst]; ACTIONS 2763 [sym_kEnd];
   ACTIONS 437 [sym_kFor]; ACTIONS 439 [sym_kFunction]; ACTIONS 441 [sym_kGoto];
   ACTIONS 443 [sym_kIf]; ACTIONS 445 [sym_kInherited]; ACTIONS 417 [sym_kNil];
   ACTIONS 415 [sym_kNot]; ACTIONS 439 [sym_kProcedure]; ACTIONS 447 [sym_kRaise];
   ACTIONS 449 [sym_kRepeat]; ACTIONS 451 [sym_kString]; ACTIONS 453 [sym_kTry];
   ACTIONS 455 [sym_kVar]; ACTIONS 457 [sym_kWhile]; ACTIONS 459 [sym_kWith]].

(** State 388. *)
Definition ts_parse_table_388 : parse_row :=
  [STATE 6213 [sym_if]; STATE 6327 [sym_ifElse; sym_while; sym_repeat; sym_for; sym_foreach;
   sym_try; sym_case; sym_block; sym_asm; sym_with; sym_raise; sym_statement; sym_goto;
   sym__statement]; STATE 15991 [sym_ifTr; sym_ifElseTr; sym_whileTr; sym_repeatTr; sym_forTr;
   sym_foreachTr; sym_tryTr; sym_caseTr]; STATE 14251 [sym_blockTr]; STATE 15991 [sym_asmTr;
   sym_withTr; sym_raiseTr; sym_statementTr; sym_gotoTr; sym__statementTr];
   STATE 13915 [sym_assignment]; STATE 11785 [sym_varAssignDef]; STATE 13915 [sym_varDef;
   sym_constDef]; STATE 6166 [sym_label]; STATE 15991 [sym__statementsTr];
   STATE 14350 [sym_statementsTr]; STATE 8019 [sym__expr; sym_exprConditional];
   STATE 7478 [sym__ref; sym_lambda; sym_inherited; sym_exprDot; sym_exprDeref; sym_exprAs;
   sym_exprTpl; sym_exprSubscript; sym_exprCall]; STATE 8019 [sym_exprBinary; sym_exprUnary];
   STATE 7478 [sym_exprParens; sym_exprBrackets; sym__literal; sym_literalString];
   STATE 6664 [sym__literalString; sym_literalChar]; STATE 7478 [sym_literalNumber];
   STATE 7742 [sym__literalInt; sym__literalFloat]; STATE 1380 [sym__ppIf];
   STATE 6327 [sym__ppStatementBlock]; STATE 11840 [aux_sym_labeledStatement_repeat1];
   STATE 863 [aux_sym__statementsTr_repeat1]; STATE 6664 [aux_sym_literalString_repeat1];
   ACTIONS 397 [anon_sym_SEMI]; ACTIONS 399 [anon_sym_LBRACK]; ACTIONS 401 [anon_sym_LPAREN];
   ACTIONS 403 [aux_sym__literalString_token1]; ACTIONS 405 [anon_sym_POUND];
   ACTIONS 407 [aux_sym__literalInt_token1]; ACTIONS 409 [aux_sym__literalInt_token2;
   aux_sym__literalInt_token3]; ACTIONS 407 [aux_sym__literalFloat_token1];
   ACTIONS 411 [aux_sym_ppUsesBlock_token1]; ACTIONS 413 [sym_kAdd; sym_kSub];
   ACTIONS 415 [sym_kAt]; ACTIONS 417 [sym_kTrue; sym_kFalse]; ACTIONS 419 [sym_labelNumber];
   ACTIONS 3 [sym__space]; ACTIONS 5 [sym_ppDirective]; ACTIONS 3 [sym_comment];
   ACTIONS 417 [sym_ppFragmentExpr]; ACTIONS 397 [sym_ppFragmentStmt];
   ACTIONS 403 [sym__literalStringMultiline]; ACTIONS 421 [sym_identifier];
   ACTIONS 423 [sym_kSpecialize]; ACTIONS 427 [sym_kAsm]; ACTIONS 429 [sym_kBegin];
   ACTIONS 431 [sym_kCase]; ACTIONS 433 [sym_kConst]; ACTIONS 2765 [sym_kEnd];
   ACTIONS 437 [sym_kFor]; ACTIONS 439 [sym_kFunction]; ACTIONS 441 [sym_kGoto];
   ACTIONS 443 [sym_kIf]; ACTIONS 445 [sym_kInherited]; ACTIONS 417 [sym_kNil];
   ACTIONS 415 [sym_kNot]; ACTIONS 439 [sym_kProcedure]; ACTIONS 447 [sym_kRaise];
   ACTIONS 449 [sym_kRepeat]; ACTIONS 451 [sym_kString]; ACTIONS 453 [sym_kTry];
   ACTIONS 455 [sym_kVar]; ACTIONS 457 [sym_kWhile]; ACTIONS 459 [sym_kWith]].

(** State 389. *)
Definition ts_parse_table_389 : parse_row :=
  [STATE 6213 [sym_if]; STATE 6327 [sym_ifElse; sym_while; sym_repeat; sym_for; sym_foreach;
   sym_try; sym_case; sym_block; sym_asm; sym_with; sym_raise; sym_statement; sym_goto;
   sym__statement]; STATE 14363 [sym_ifTr; sym_ifElseTr; sym_whileTr; sym_repeatTr; sym_forTr;
   sym_foreachTr; sym_tryTr; sym_caseTr]; STATE 14251 [sym_blockTr]; STATE 14363 [sym_asmTr;
   sym_withTr; sym_raiseTr; sym_statementTr; sym_gotoTr; sym__statementTr];
   STATE 13915 [sym_assignment]; STATE 11785 [sym_varAssignDef]; STATE 13915 [sym_varDef;
   sym_constDef]; STATE 6166 [sym_label]; STATE 14363 [sym__statementsTr]; STATE 8019 [sym__expr;
   sym_exprConditional]; STATE 7478 [sym__ref; sym_lambda; sym_inherited; sym_exprDot;
   sym_exprDeref; sym_exprAs; sym_exprTpl; sym_exprSubscript; sym_exprCall];
   STATE 8019 [sym_exprBinary; sym_exprUnary]; STATE 7478 [sym_exprParens; sym_exprBrackets;
   sym__literal; sym_literalString]; STATE 6664 [sym__literalString; sym_literalChar];
   STATE 7478 [sym_literalNumber]; STATE 7742 [sym__literalInt; sym__literalFloat];
   STATE 1380 [sym__ppIf]; STATE 6327 [sym__ppStatementBlock];
   STATE 11840 [aux_sym_labeledStatement_repeat1]; STATE 863 [aux_sym__statementsTr_repeat1];
   STATE 6664 [aux_sym_literalString_repeat1]; ACTIONS 397 [anon_sym_SEMI];
   ACTIONS 2767 [anon_sym_COLON]; ACTIONS 399 [anon_sym_LBRACK]; ACTIONS 401 [anon_sym_LPAREN];
   ACTIONS 403 [aux_sym__literalString_token1]; ACTIONS 405 [anon_sym_POUND];
   ACTIONS 407 [aux_sym__literalInt_token1]; ACTIONS 409 [aux_sym__literalInt_token2;
   aux_sym__literalInt_token3]; ACTIONS 407 [aux_sym__literalFloat_token1];
   ACTIONS 411 [aux_sym_ppUsesBlock_token1]; ACTIONS 413 [sym_kAdd; sym_kSub];
   ACTIONS 415 [sym_kAt]; ACTIONS 417 [sym_kTrue; sym_kFalse]; ACTIONS 419 [sym_labelNumber];
   ACTIONS 3 [sym__space]; ACTIONS 5 [sym_ppDirective]; ACTIONS 3 [sym_comment];
   ACTIONS 417 [sym_ppFragmentExpr]; ACTIONS 397 [sym_ppFragmentStmt];
   ACTIONS 403 [sym__literalStringMultiline]; ACTIONS 421 [sym_identifier];
   ACTIONS 423 [sym_kSpecialize]; ACTIONS 427 [sym_kAsm]; ACTIONS 429 [sym_kBegin];
   ACTIONS 431 [sym_kCase]; ACTIONS 433 [sym_kConst]; ACTIONS 2769 [sym_kEnd];
   ACTIONS 437 [sym_kFor]; ACTIONS 439 [sym_kFunction]; ACTIONS 441 [sym_kGoto];
   ACTIONS 443 [sym_kIf]; ACTIONS 445 [sym_kInherited]; ACTIONS 417 [sym_kNil];
   ACTIONS 415 [sym_kNot]; ACTIONS 439 [sym_kProcedure]; ACTIONS 447 [sym_kRaise];
   ACTIONS 449 [sym_kRepeat]; ACTIONS 451 [sym_kString]; ACTIONS 453 [sym_kTry];
   ACTIONS 455 [sym_kVar]; ACTIONS 457 [sym_kWhile]; ACTIONS 459 [sym_kWith]].

(** State 390. *)
Definition ts_parse_table_390 : parse_row :=
  [STATE 6213 [sym_if]; STATE 6327 [sym_ifElse; sym_while; sym_repeat; sym_for; sym_foreach;
   sym_try; sym_case; sym_block; sym_asm; sym_with; sym_raise; sym_statement; sym_goto;
   sym__statement]; STATE 14368 [sym_ifTr; sym_ifElseTr; sym_whileTr; sym_repeatTr; sym_forTr;
   sym_foreachTr; sym_tryTr; sym_caseTr]; STATE 14251 [sym_blockTr]; STATE 14368 [sym_asmTr;
   sym_withTr; sym_raiseTr; sym_statementTr; sym_gotoTr; sym__statementTr];
   STATE 13915 [sym_assignment]; STATE 11785 [sym_varAssignDef]; STATE 13915 [sym_varDef;
   sym_constDef]; STATE 6166 [sym_label]; STATE 14368 [sym__statementsTr]; STATE 8019 [sym__expr;
   sym_exprConditional]; STATE 7478 [sym__ref; sym_lambda; sym_inherited; sym_exprDot;
   sym_exprDeref; sym_exprAs; sym_exprTpl; sym_exprSubscript; sym_exprCall];
   STATE 8019 [sym_exprBinary; sym_exprUnary]; STATE 7478 [sym_exprParens; sym_exprBrackets;
   sym__literal; sym_literalString]; STATE 6664 [sym__literalString; sym_literalChar];
   STATE 7478 [sym_literalNumber]; STATE 7742 [sym__literalInt; sym__literalFloat];
   STATE 1380 [sym__ppIf]; STATE 6327 [sym__ppStatementBlock];
   STATE 11840 [aux_sym_labeledStatement_repeat1]; STATE 863 [aux_sym__statementsTr_repeat1];
   STATE 6664 [aux_sym_literalString_repeat1]; ACTIONS 397 [anon_sym_SEMI];
   ACTIONS 2771 [anon_sym_COLON]; ACTIONS 399 [anon_sym_LBRACK]; ACTIONS 401 [anon_sym_LPAREN];
   ACTIONS 403 [aux_sym__literalString_token1]; ACTIONS 405 [anon_sym_POUND];
   ACTIONS 407 [aux_sym__literalInt_token1]; ACTIONS 409 [aux_sym__literalInt_token2;
   aux_sym__literalInt_token3]; ACTIONS 407 [aux_sym__literalFloat_token1];
   ACTIONS 411 [aux_sym_ppUsesBlock_token1]; ACTIONS 413 [sym_kAdd; sym_kSub];
   ACTIONS 415 [sym_kAt]; ACTIONS 417 [sym_kTrue; sym_kFalse]; ACTIONS 419 [sym_labelNumber];
   ACTIONS 3 [sym__space]; ACTIONS 5 [sym_ppDirective]; ACTIONS 3 [sym_comment];
   ACTIONS 417 [sym_ppFragmentExpr]; ACTIONS 397 [sym_ppFragmentStmt];
   ACTIONS 403 [sym__literalStringMultiline]; ACTIONS 421 [sym_identifier];
   ACTIONS 423 [sym_kSpecialize]; ACTIONS 427 [sym_kAsm]; ACTIONS 429 [sym_kBegin];
   ACTIONS 431 [sym_kCase]; ACTIONS 433 [sym_kConst]; ACTIONS 2773 [sym_kEnd];
   ACTIONS 437 [sym_kFor]; ACTIONS 439 [sym_kFunction]; ACTIONS 441 [sym_kGoto];
   ACTIONS 443 [sym_kIf]; ACTIONS 445 [sym_kInherited]; ACTIONS 417 [sym_kNil];
   ACTIONS 415 [sym_kNot]; ACTIONS 439 [sym_kProcedure]; ACTIONS 447 [sym_kRaise];
   ACTIONS 449 [sym_kRepeat]; ACTIONS 451 [sym_kString]; ACTIONS 453 [sym_kTry];
   ACTIONS 455 [sym_kVar]; ACTIONS 457 [sym_kWhile]; ACTIONS 459 [sym_kWith]].

(** State 391. *)
Definition ts_parse_table_391 : parse_row :=
  [STATE 6213 [sym_if]; STATE 6327 [sym_ifElse; sym_while; sym_repeat; sym_for; sym_foreach;
   sym_try; sym_case; sym_block; sym_asm; sym_with; sym_raise; sym_statement; sym_goto;
   sym__statement]; STATE 14371 [sym_ifTr; sym_ifElseTr; sym_whileTr; sym_repeatTr; sym_forTr;
   sym_foreachTr; sym_tryTr; sym_caseTr]; STATE 14251 [sym_blockTr]; STATE 14371 [sym_asmTr;
   sym_withTr; sym_raiseTr; sym_statementTr; sym_gotoTr; sym__statementTr];
   STATE 13915 [sym_assignment]; STATE 11785 [sym_varAssignDef]; STATE 13915 [sym_varDef;
   sym_constDef]; STATE 6166 [sym_label]; STATE 14371 [sym__statementsTr]; STATE 8019 [sym__expr;
   sym_exprConditional]; STATE 7478 [sym__ref; sym_lambda; sym_inherited; sym_exprDot;
   sym_exprDeref; sym_exprAs; sym_exprTpl; sym_exprSubscript; sym_exprCall];
   STATE 8019 [sym_exprBinary; sym_exprUnary]; STATE 7478 [sym_exprParens; sym_exprBrackets;
   sym__literal; sym_literalString]; STATE 6664 [sym__literalString; sym_literalChar];
   STATE 7478 [sym_literalNumber]; STATE 7742 [sym__literalInt; sym__literalFloat];
   STATE 1380 [sym__ppIf]; STATE 6327 [sym__ppStatementBlock];
   STATE 11840 [aux_sym_labeledStatement_repeat1]; STATE 863 [aux_sym__statementsTr_repeat1];
   STATE 6664 [aux_sym_literalString_repeat1]; ACTIONS 397 [anon_sym_SEMI];
   ACTIONS 2775 [anon_sym_COLON]; ACTIONS 399 [anon_sym_LBRACK]; ACTIONS 401 [anon_sym_LPAREN];
   ACTIONS 403 [aux_sym__literalString_token1]; ACTIONS 405 [anon_sym_POUND];
   ACTIONS 407 [aux_sym__literalInt_token1]; ACTIONS 409 [aux_sym__literalInt_token2;
   aux_sym__literalInt_token3]; ACTIONS 407 [aux_sym__literalFloat_token1];
   ACTIONS 411 [aux_sym_ppUsesBlock_token1]; ACTIONS 413 [sym_kAdd; sym_kSub];
   ACTIONS 415 [sym_kAt]; ACTIONS 417 [sym_kTrue; sym_kFalse]; ACTIONS 419 [sym_labelNumber];
   ACTIONS 3 [sym__space]; ACTIONS 5 [sym_ppDirective]; ACTIONS 3 [sym_comment];
   ACTIONS 417 [sym_ppFragmentExpr]; ACTIONS 397 [sym_ppFragmentStmt];
   ACTIONS 403 [sym__literalStringMultiline]; ACTIONS 421 [sym_identifier];
   ACTIONS 423 [sym_kSpecialize]; ACTIONS 427 [sym_kAsm]; ACTIONS 429 [sym_kBegin];
   ACTIONS 431 [sym_kCase]; ACTIONS 433 [sym_kConst]; ACTIONS 2777 [sym_kEnd];
   ACTIONS 437 [sym_kFor]; ACTIONS 439 [sym_kFunction]; ACTIONS 441 [sym_kGoto];
   ACTIONS 443 [sym_kIf]; ACTIONS 445 [sym_kInherited]; ACTIONS 417 [sym_kNil];
   ACTIONS 415 [sym_kNot]; ACTIONS 439 [sym_kProcedure]; ACTIONS 447 [sym_kRaise];
   ACTIONS 449 [sym_kRepeat]; ACTIONS 451 [sym_kString]; ACTIONS 453 [sym_kTry];
   ACTIONS 455 [sym_kVar]; ACTIONS 457 [sym_kWhile]; ACTIONS 459 [sym_kWith]].

(** State 392. *)
Definition ts_parse_table_392 : parse_row :=
  [STATE 6273 [sym_if]; STATE 6303 [sym_ifElse; sym_while; sym_repeat; sym_for; sym_foreach;
   sym_try; sym_case; sym_block; sym_asm; sym_with; sym_raise; sym_statement; sym_goto;
   sym__statement]; STATE 15875 [sym_ifTr; sym_ifElseTr; sym_whileTr; sym_repeatTr; sym_forTr;
   sym_foreachTr; sym_tryTr; sym_caseTr]; STATE 14967 [sym_blockTr]; STATE 15875 [sym_asmTr;
   sym_withTr; sym_raiseTr; sym_statementTr; sym_gotoTr; sym__statementTr];
   STATE 13420 [sym_assignment]; STATE 11684 [sym_varAssignDef]; STATE 13420 [sym_varDef;
   sym_constDef]; STATE 6307 [sym_label]; STATE 15875 [sym__statementsTr];
   STATE 14398 [sym_statementsTr]; STATE 8128 [sym__expr; sym_exprConditional];
   STATE 7533 [sym__ref; sym_lambda; sym_inherited; sym_exprDot; sym_exprDeref; sym_exprAs;
   sym_exprTpl; sym_exprSubscript; sym_exprCall]; STATE 8128 [sym_exprBinary; sym_exprUnary];
   STATE 7533 [sym_exprParens; sym_exprBrackets; sym__literal; sym_literalString];
   STATE 6915 [sym__literalString; sym_literalChar]; STATE 7533 [sym_literalNumber];
   STATE 7570 [sym__literalInt; sym__literalFloat]; STATE 1383 [sym__ppIf];
   STATE 6303 [sym__ppStatementBlock]; STATE 11951 [aux_sym_labeledStatement_repeat1];
   STATE 860 [aux_sym__statementsTr_repeat1]; STATE 6915 [aux_sym_literalString_repeat1];
   ACTIONS 925 [anon_sym_SEMI]; ACTIONS 927 [anon_sym_LBRACK]; ACTIONS 929 [anon_sym_LPAREN];
   ACTIONS 931 [aux_sym__literalString_token1]; ACTIONS 933 [anon_sym_POUND];
   ACTIONS 935 [aux_sym__literalInt_token1]; ACTIONS 937 [aux_sym__literalInt_token2;
   aux_sym__literalInt_token3]; ACTIONS 935 [aux_sym__literalFloat_token1];
   ACTIONS 411 [aux_sym_ppUsesBlock_token1]; ACTIONS 939 [sym_kAdd; sym_kSub];
   ACTIONS 941 [sym_kAt]; ACTIONS 943 [sym_kTrue; sym_kFalse]; ACTIONS 945 [sym_labelNumber];
   ACTIONS 3 [sym__space]; ACTIONS 5 [sym_ppDirective]; ACTIONS 3 [sym_comment];
   ACTIONS 943 [sym_ppFragmentExpr]; ACTIONS 925 [sym_ppFragmentStmt];
   ACTIONS 931 [sym__literalStringMultiline]; ACTIONS 947 [sym_identifier];
   ACTIONS 949 [sym_kSpecialize]; ACTIONS 951 [sym_kAsm]; ACTIONS 953 [sym_kBegin];
   ACTIONS 955 [sym_kCase]; ACTIONS 957 [sym_kConst]; ACTIONS 959 [sym_kFor];
   ACTIONS 961 [sym_kFunction]; ACTIONS 963 [sym_kGoto]; ACTIONS 965 [sym_kIf];
   ACTIONS 967 [sym_kInherited]; ACTIONS 943 [sym_kNil]; ACTIONS 941 [sym_kNot];
   ACTIONS 961 [sym_kProcedure]; ACTIONS 969 [sym_kRaise]; ACTIONS 971 [sym_kRepeat];
   ACTIONS 973 [sym_kString]; ACTIONS 975 [sym_kTry]; ACTIONS 2779 [sym_kUntil];
   ACTIONS 979 [sym_kVar]; ACTIONS 981 [sym_kWhile]; ACTIONS 983 [sym_kWith]].

(** State 393. *)
Definition ts_parse_table_393 : parse_row :=
  [STATE 6213 [sym_if]; STATE 6327 [sym_ifElse; sym_while; sym_repeat; sym_for; sym_foreach;
   sym_try; sym_case; sym_block; sym_asm; sym_with; sym_raise; sym_statement; sym_goto;
   sym__statement]; STATE 15991 [sym_ifTr; sym_ifElseTr; sym_whileTr; sym_repeatTr; sym_forTr;
   sym_foreachTr; sym_tryTr; sym_caseTr]; STATE 14251 [sym_blockTr]; STATE 15991 [sym_asmTr;
   sym_withTr; sym_raiseTr; sym_statementTr; sym_gotoTr; sym__statementTr];
   STATE 13915 [sym_assignment]; STATE 11785 [sym_varAssignDef]; STATE 13915 [sym_varDef;
   sym_constDef]; STATE 6166 [sym_label]; STATE 15991 [sym__statementsTr];
   STATE 14444 [sym_statementsTr]; STATE 8019 [sym__expr; sym_exprConditional];
   STATE 7478 [sym__ref; sym_lambda; sym_inherited; sym_exprDot; sym_exprDeref; sym_exprAs;
   sym_exprTpl; sym_exprSubscript; sym_exprCall]; STATE 8019 [sym_exprBinary; sym_exprUnary];
   STATE 7478 [sym_exprParens; sym_exprBrackets; sym__literal; sym_literalString];
   STATE 6664 [sym__literalString; sym_literalChar]; STATE 7478 [sym_literalNumber];
   STATE 7742 [sym__literalInt; sym__literalFloat]; STATE 1380 [sym__ppIf];
   STATE 6327 [sym__ppStatementBlock]; STATE 11840 [aux_sym_labeledStatement_repeat1];
   STATE 863 [aux_sym__statementsTr_repeat1]; STATE 6664 [aux_sym_literalString_repeat1];
   ACTIONS 397 [anon_sym_SEMI]; ACTIONS 399 [anon_sym_LBRACK]; ACTIONS 401 [anon_sym_LPAREN];
   ACTIONS 403 [aux_sym__literalString_token1]; ACTIONS 405 [anon_sym_POUND];
   ACTIONS 407 [aux_sym__literalInt_token1]; ACTIONS 409 [aux_sym__literalInt_token2;
   aux_sym__literalInt_token3]; ACTIONS 407 [aux_sym__literalFloat_token1];
   ACTIONS 411 [aux_sym_ppUsesBlock_token1]; ACTIONS 413 [sym_kAdd; sym_kSub];
   ACTIONS 415 [sym_kAt]; ACTIONS 417 [sym_kTrue; sym_kFalse]; ACTIONS 419 [sym_labelNumber];
   ACTIONS 3 [sym__space]; ACTIONS 5 [sym_ppDirective]; ACTIONS 3 [sym_comment];
   ACTIONS 417 [sym_ppFragmentExpr]; ACTIONS 397 [sym_ppFragmentStmt];
   ACTIONS 403 [sym__literalStringMultiline]; ACTIONS 421 [sym_identifier];
   ACTIONS 423 [sym_kSpecialize]; ACTIONS 427 [sym_kAsm]; ACTIONS 429 [sym_kBegin];
   ACTIONS 431 [sym_kCase]; ACTIONS 433 [sym_kConst]; ACTIONS 2781 [sym_kEnd];
   ACTIONS 437 [sym_kFor]; ACTIONS 439 [sym_kFunction]; ACTIONS 441 [sym_kGoto];
   ACTIONS 443 [sym_kIf]; ACTIONS 445 [sym_kInherited]; ACTIONS 417 [sym_kNil];
   ACTIONS 415 [sym_kNot]; ACTIONS 439 [sym_kProcedure]; ACTIONS 447 [sym_kRaise];
   ACTIONS 449 [sym_kRepeat]; ACTIONS 451 [sym_kString]; ACTIONS 453 [sym_kTry];
   ACTIONS 455 [sym_kVar]; ACTIONS 457 [sym_kWhile]; ACTIONS 459 [sym_kWith]].

(** State 394. *)
Definition ts_parse_table_394 : parse_row :=
  [STATE 6213 [sym_if]; STATE 6327 [sym_ifElse; sym_while; sym_repeat; sym_for; sym_foreach;
   sym_try; sym_case; sym_block; sym_asm; sym_with; sym_raise; sym_statement; sym_goto;
   sym__statement]; STATE 15991 [sym_ifTr; sym_ifElseTr; sym_whileTr; sym_repeatTr; sym_forTr;
   sym_foreachTr; sym_tryTr; sym_caseTr]; STATE 14251 [sym_blockTr]; STATE 15991 [sym_asmTr;
   sym_withTr; sym_raiseTr; sym_statementTr; sym_gotoTr; sym__statementTr];
   STATE 13915 [sym_assignment]; STATE 11785 [sym_varAssignDef]; STATE 13915 [sym_varDef;
   sym_constDef]; STATE 6166 [sym_label]; STATE 15991 [sym__statementsTr];
   STATE 14472 [sym_statementsTr]; STATE 8019 [sym__expr; sym_exprConditional];
   STATE 7478 [sym__ref; sym_lambda; sym_inherited; sym_exprDot; sym_exprDeref; sym_exprAs;
   sym_exprTpl; sym_exprSubscript; sym_exprCall]; STATE 8019 [sym_exprBinary; sym_exprUnary];
   STATE 7478 [sym_exprParens; sym_exprBrackets; sym__literal; sym_literalString];
   STATE 6664 [sym__literalString; sym_literalChar]; STATE 7478 [sym_literalNumber];
   STATE 7742 [sym__literalInt; sym__literalFloat]; STATE 1380 [sym__ppIf];
   STATE 6327 [sym__ppStatementBlock]; STATE 11840 [aux_sym_labeledStatement_repeat1];
   STATE 863 [aux_sym__statementsTr_repeat1]; STATE 6664 [aux_sym_literalString_repeat1];
   ACTIONS 397 [anon_sym_SEMI]; ACTIONS 399 [anon_sym_LBRACK]; ACTIONS 401 [anon_sym_LPAREN];
   ACTIONS 403 [aux_sym__literalString_token1]; ACTIONS 405 [anon_sym_POUND];
   ACTIONS 407 [aux_sym__literalInt_token1]; ACTIONS 409 [aux_sym__literalInt_token2;
   aux_sym__literalInt_token3]; ACTIONS 407 [aux_sym__literalFloat_token1];
   ACTIONS 411 [aux_sym_ppUsesBlock_token1]; ACTIONS 413 [sym_kAdd; sym_kSub];
   ACTIONS 415 [sym_kAt]; ACTIONS 417 [sym_kTrue; sym_kFalse]; ACTIONS 419 [sym_labelNumber];
   ACTIONS 3 [sym__space]; ACTIONS 5 [sym_ppDirective]; ACTIONS 3 [sym_comment];
   ACTIONS 417 [sym_ppFragmentExpr]; ACTIONS 397 [sym_ppFragmentStmt];
   ACTIONS 403 [sym__literalStringMultiline]; ACTIONS 421 [sym_identifier];
   ACTIONS 423 [sym_kSpecialize]; ACTIONS 427 [sym_kAsm]; ACTIONS 429 [sym_kBegin];
   ACTIONS 431 [sym_kCase]; ACTIONS 433 [sym_kConst]; ACTIONS 2783 [sym_kEnd];
   ACTIONS 437 [sym_kFor]; ACTIONS 439 [sym_kFunction]; ACTIONS 441 [sym_kGoto];
   ACTIONS 443 [sym_kIf]; ACTIONS 445 [sym_kInherited]; ACTIONS 417 [sym_kNil];
   ACTIONS 415 [sym_kNot]; ACTIONS 439 [sym_kProcedure]; ACTIONS 447 [sym_kRaise];
   ACTIONS 449 [sym_kRepeat]; ACTIONS 451 [sym_kString]; ACTIONS 453 [sym_kTry];
   ACTIONS 455 [sym_kVar]; ACTIONS 457 [sym_kWhile]; ACTIONS 459 [sym_kWith]].

(** State 395. *)
Definition ts_parse_table_395 : parse_row :=
  [STATE 6213 [sym_if]; STATE 6327 [sym_ifElse; sym_while; sym_repeat; sym_for; sym_foreach;
   sym_try; sym_case; sym_block; sym_asm; sym_with; sym_raise; sym_statement; sym_goto;
   sym__statement]; STATE 14484 [sym_ifTr; sym_ifElseTr; sym_whileTr; sym_repeatTr; sym_forTr;
   sym_foreachTr; sym_tryTr; sym_caseTr]; STATE 14251 [sym_blockTr]; STATE 14484 [sym_asmTr;
   sym_withTr; sym_raiseTr; sym_statementTr; sym_gotoTr; sym__statementTr];
   STATE 13915 [sym_assignment]; STATE 11785 [sym_varAssignDef]; STATE 13915 [sym_varDef;
   sym_constDef]; STATE 6166 [sym_label]; STATE 14484 [sym__statementsTr]; STATE 8019 [sym__expr;
   sym_exprConditional]; STATE 7478 [sym__ref; sym_lambda; sym_inherited; sym_exprDot;
   sym_exprDeref; sym_exprAs; sym_exprTpl; sym_exprSubscript; sym_exprCall];
   STATE 8019 [sym_exprBinary; sym_exprUnary]; STATE 7478 [sym_exprParens; sym_exprBrackets;
   sym__literal; sym_literalString]; STATE 6664 [sym__literalString; sym_literalChar];
   STATE 7478 [sym_literalNumber]; STATE 7742 [sym__literalInt; sym__literalFloat];
   STATE 1380 [sym__ppIf]; STATE 6327 [sym__ppStatementBlock];
   STATE 11840 [aux_sym_labeledStatement_repeat1]; STATE 863 [aux_sym__statementsTr_repeat1];
   STATE 6664 [aux_sym_literalString_repeat1]; ACTIONS 397 [anon_sym_SEMI];
   ACTIONS 2785 [anon_sym_COLON]; ACTIONS 399 [anon_sym_LBRACK]; ACTIONS 401 [anon_sym_LPAREN];
   ACTIONS 403 [aux_sym__literalString_token1]; ACTIONS 405 [anon_sym_POUND];
   ACTIONS 407 [aux_sym__literalInt_token1]; ACTIONS 409 [aux_sym__literalInt_token2;
   aux_sym__literalInt_token3]; ACTIONS 407 [aux_sym__literalFloat_token1];
   ACTIONS 411 [aux_sym_ppUsesBlock_token1]; ACTIONS 413 [sym_kAdd; sym_kSub];
   ACTIONS 415 [sym_kAt]; ACTIONS 417 [sym_kTrue; sym_kFalse]; ACTIONS 419 [sym_labelNumber];
   ACTIONS 3 [sym__space]; ACTIONS 5 [sym_ppDirective]; ACTIONS 3 [sym_comment];
   ACTIONS 417 [sym_ppFragmentExpr]; ACTIONS 397 [sym_ppFragmentStmt];
   ACTIONS 403 [sym__literalStringMultiline]; ACTIONS 421 [sym_identifier];
   ACTIONS 423 [sym_kSpecialize]; ACTIONS 427 [sym_kAsm]; ACTIONS 429 [sym_kBegin];
   ACTIONS 431 [sym_kCase]; ACTIONS 433 [sym_kConst]; ACTIONS 2787 [sym_kEnd];
   ACTIONS 437 [sym_kFor]; ACTIONS 439 [sym_kFunction]; ACTIONS 441 [sym_kGoto];
   ACTIONS 443 [sym_kIf]; ACTIONS 445 [sym_kInherited]; ACTIONS 417 [sym_kNil];
   ACTIONS 415 [sym_kNot]; ACTIONS 439 [sym_kProcedure]; ACTIONS 447 [sym_kRaise];
   ACTIONS 449 [sym_kRepeat]; ACTIONS 451 [sym_kString]; ACTIONS 453 [sym_kTry];
   ACTIONS 455 [sym_kVar]; ACTIONS 457 [sym_kWhile]; ACTIONS 459 [sym_kWith]].

(** State 396. *)
Definition ts_parse_table_396 : parse_row :=
  [STATE 6213 [sym_if]; STATE 6327 [sym_ifElse; sym_while; sym_repeat; sym_for; sym_foreach;
   sym_try; sym_case; sym_block; sym_asm; sym_with; sym_raise; sym_statement; sym_goto;
   sym__statement]; STATE 14489 [sym_ifTr; sym_ifElseTr; sym_whileTr; sym_repeatTr; sym_forTr;
   sym_foreachTr; sym_tryTr; sym_caseTr]; STATE 14251 [sym_blockTr]; STATE 14489 [sym_asmTr;
   sym_withTr; sym_raiseTr; sym_statementTr; sym_gotoTr; sym__statementTr];
   STATE 13915 [sym_assignment]; STATE 11785 [sym_varAssignDef]; STATE 13915 [sym_varDef;
   sym_constDef]; STATE 6166 [sym_label]; STATE 14489 [sym__statementsTr]; STATE 8019 [sym__expr;
   sym_exprConditional]; STATE 7478 [sym__ref; sym_lambda; sym_inherited; sym_exprDot;
   sym_exprDeref; sym_exprAs; sym_exprTpl; sym_exprSubscript; sym_exprCall];
   STATE 8019 [sym_exprBinary; sym_exprUnary]; STATE 7478 [sym_exprParens; sym_exprBrackets;
   sym__literal; sym_literalString]; STATE 6664 [sym__literalString; sym_literalChar];
   STATE 7478 [sym_literalNumber]; STATE 7742 [sym__literalInt; sym__literalFloat];
   STATE 1380 [sym__ppIf]; STATE 6327 [sym__ppStatementBlock];
   STATE 11840 [aux_sym_labeledStatement_repeat1]; STATE 863 [aux_sym__statementsTr_repeat1];
   STATE 6664 [aux_sym_literalString_repeat1]; ACTIONS 397 [anon_sym_SEMI];
   ACTIONS 2789 [anon_sym_COLON]; ACTIONS 399 [anon_sym_LBRACK]; ACTIONS 401 [anon_sym_LPAREN];
   ACTIONS 403 [aux_sym__literalString_token1]; ACTIONS 405 [anon_sym_POUND];
   ACTIONS 407 [aux_sym__literalInt_token1]; ACTIONS 409 [aux_sym__literalInt_token2;
   aux_sym__literalInt_token3]; ACTIONS 407 [aux_sym__literalFloat_token1];
   ACTIONS 411 [aux_sym_ppUsesBlock_token1]; ACTIONS 413 [sym_kAdd; sym_kSub];
   ACTIONS 415 [sym_kAt]; ACTIONS 417 [sym_kTrue; sym_kFalse]; ACTIONS 419 [sym_labelNumber];
   ACTIONS 3 [sym__space]; ACTIONS 5 [sym_ppDirective]; ACTIONS 3 [sym_comment];
   ACTIONS 417 [sym_ppFragmentExpr]; ACTIONS 397 [sym_ppFragmentStmt];
   ACTIONS 403 [sym__literalStringMultiline]; ACTIONS 421 [sym_identifier];
   ACTIONS 423 [sym_kSpecialize]; ACTIONS 427 [sym_kAsm]; ACTIONS 429 [sym_kBegin];
   ACTIONS 431 [sym_kCase]; ACTIONS 433 [sym_kConst]; ACTIONS 2791 [sym_kEnd];
   ACTIONS 437 [sym_kFor]; ACTIONS 439 [sym_kFunction]; ACTIONS 441 [sym_kGoto];
   ACTIONS 443 [sym_kIf]; ACTIONS 445 [sym_kInherited]; ACTIONS 417 [sym_kNil];
   ACTIONS 415 [sym_kNot]; ACTIONS 439 [sym_kProcedure]; ACTIONS 447 [sym_kRaise];
   ACTIONS 449 [sym_kRepeat]; ACTIONS 451 [sym_kString]; ACTIONS 453 [sym_kTry];
   ACTIONS 455 [sym_kVar]; ACTIONS 457 [sym_kWhile]; ACTIONS 459 [sym_kWith]].

(** State 397. *)
Definition ts_parse_table_397 : parse_row :=
  [STATE 6213 [sym_if]; STATE 6327 [sym_ifElse; sym_while; sym_repeat; sym_for; sym_foreach;
   sym_try; sym_case; sym_block; sym_asm; sym_with; sym_raise; sym_statement; sym_goto;
   sym__statement]; STATE 14492 [sym_ifTr; sym_ifElseTr; sym_whileTr; sym_repeatTr; sym_forTr;
   sym_foreachTr; sym_tryTr; sym_caseTr]; STATE 14251 [sym_blockTr]; STATE 14492 [sym_asmTr;
   sym_withTr; sym_raiseTr; sym_statementTr; sym_gotoTr; sym__statementTr];
   STATE 13915 [sym_assignment]; STATE 11785 [sym_varAssignDef]; STATE 13915 [sym_varDef;
   sym_constDef]; STATE 6166 [sym_label]; STATE 14492 [sym__statementsTr]; STATE 8019 [sym__expr;
   sym_exprConditional]; STATE 7478 [sym__ref; sym_lambda; sym_inherited; sym_exprDot;
   sym_exprDeref; sym_exprAs; sym_exprTpl; sym_exprSubscript; sym_exprCall];
   STATE 8019 [sym_exprBinary; sym_exprUnary]; STATE 7478 [sym_exprParens; sym_exprBrackets;
   sym__literal; sym_literalString]; STATE 6664 [sym__literalString; sym_literalChar];
   STATE 7478 [sym_literalNumber]; STATE 7742 [sym__literalInt; sym__literalFloat];
   STATE 1380 [sym__ppIf]; STATE 6327 [sym__ppStatementBlock];
   STATE 11840 [aux_sym_labeledStatement_repeat1]; STATE 863 [aux_sym__statementsTr_repeat1];
   STATE 6664 [aux_sym_literalString_repeat1]; ACTIONS 397 [anon_sym_SEMI];
   ACTIONS 2793 [anon_sym_COLON]; ACTIONS 399 [anon_sym_LBRACK]; ACTIONS 401 [anon_sym_LPAREN];
   ACTIONS 403 [aux_sym__literalString_token1]; ACTIONS 405 [anon_sym_POUND];
   ACTIONS 407 [aux_sym__literalInt_token1]; ACTIONS 409 [aux_sym__literalInt_token2;
   aux_sym__literalInt_token3]; ACTIONS 407 [aux_sym__literalFloat_token1];
   ACTIONS 411 [aux_sym_ppUsesBlock_token1]; ACTIONS 413 [sym_kAdd; sym_kSub];
   ACTIONS 415 [sym_kAt]; ACTIONS 417 [sym_kTrue; sym_kFalse]; ACTIONS 419 [sym_labelNumber];
   ACTIONS 3 [sym__space]; ACTIONS 5 [sym_ppDirective]; ACTIONS 3 [sym_comment];
   ACTIONS 417 [sym_ppFragmentExpr]; ACTIONS 397 [sym_ppFragmentStmt];
   ACTIONS 403 [sym__literalStringMultiline]; ACTIONS 421 [sym_identifier];
   ACTIONS 423 [sym_kSpecialize]; ACTIONS 427 [sym_kAsm]; ACTIONS 429 [sym_kBegin];
   ACTIONS 431 [sym_kCase]; ACTIONS 433 [sym_kConst]; ACTIONS 2795 [sym_kEnd];
   ACTIONS 437 [sym_kFor]; ACTIONS 439 [sym_kFunction]; ACTIONS 441 [sym_kGoto];
   ACTIONS 443 [sym_kIf]; ACTIONS 445 [sym_kInherited]; ACTIONS 417 [sym_kNil];
   ACTIONS 415 [sym_kNot]; ACTIONS 439 [sym_kProcedure]; ACTIONS 447 [sym_kRaise];
   ACTIONS 449 [sym_kRepeat]; ACTIONS 451 [sym_kString]; ACTIONS 453 [sym_kTry];
   ACTIONS 455 [sym_kVar]; ACTIONS 457 [sym_kWhile]; ACTIONS 459 [sym_kWith]].

(** State 398. *)
Definition ts_parse_table_398 : parse_row :=
  [STATE 6273 [sym_if]; STATE 6303 [sym_ifElse; sym_while; sym_repeat; sym_for; sym_foreach;
   sym_try; sym_case; sym_block; sym_asm; sym_with; sym_raise; sym_statement; sym_goto;
   sym__statement]; STATE 15875 [sym_ifTr; sym_ifElseTr; sym_whileTr; sym_repeatTr; sym_forTr;
   sym_foreachTr; sym_tryTr; sym_caseTr]; STATE 14967 [sym_blockTr]; STATE 15875 [sym_asmTr;
   sym_withTr; sym_raiseTr; sym_statementTr; sym_gotoTr; sym__statementTr];
   STATE 13420 [sym_assignment]; STATE 11684 [sym_varAssignDef]; STATE 13420 [sym_varDef;
   sym_constDef]; STATE 6307 [sym_label]; STATE 15875 [sym__statementsTr];
   STATE 14515 [sym_statementsTr]; STATE 8128 [sym__expr; sym_exprConditional];
   STATE 7533 [sym__ref; sym_lambda; sym_inherited; sym_exprDot; sym_exprDeref; sym_exprAs;
   sym_exprTpl; sym_exprSubscript; sym_exprCall]; STATE 8128 [sym_exprBinary; sym_exprUnary];
   STATE 7533 [sym_exprParens; sym_exprBrackets; sym__literal; sym_literalString];
   STATE 6915 [sym__literalString; sym_literalChar]; STATE 7533 [sym_literalNumber];
   STATE 7570 [sym__literalInt; sym__literalFloat]; STATE 1383 [sym__ppIf];
   STATE 6303 [sym__ppStatementBlock]; STATE 11951 [aux_sym_labeledStatement_repeat1];
   STATE 860 [aux_sym__statementsTr_repeat1]; STATE 6915 [aux_sym_literalString_repeat1];
   ACTIONS 925 [anon_sym_SEMI]; ACTIONS 927 [anon_sym_LBRACK]; ACTIONS 929 [anon_sym_LPAREN];
   ACTIONS 931 [aux_sym__literalString_token1]; ACTIONS 933 [anon_sym_POUND];
   ACTIONS 935 [aux_sym__literalInt_token1]; ACTIONS 937 [aux_sym__literalInt_token2;
   aux_sym__literalInt_token3]; ACTIONS 935 [aux_sym__literalFloat_token1];
   ACTIONS 411 [aux_sym_ppUsesBlock_token1]; ACTIONS 939 [sym_kAdd; sym_kSub];
   ACTIONS 941 [sym_kAt]; ACTIONS 943 [sym_kTrue; sym_kFalse]; ACTIONS 945 [sym_labelNumber];
   ACTIONS 3 [sym__space]; ACTIONS 5 [sym_ppDirective]; ACTIONS 3 [sym_comment];
   ACTIONS 943 [sym_ppFragmentExpr]; ACTIONS 925 [sym_ppFragmentStmt];
   ACTIONS 931 [sym__literalStringMultiline]; ACTIONS 947 [sym_identifier];
   ACTIONS 949 [sym_kSpecialize]; ACTIONS 951 [sym_kAsm]; ACTIONS 953 [sym_kBegin];
   ACTIONS 955 [sym_kCase]; ACTIONS 957 [sym_kConst]; ACTIONS 959 [sym_kFor];
   ACTIONS 961 [sym_kFunction]; ACTIONS 963 [sym_kGoto]; ACTIONS 965 [sym_kIf];
   ACTIONS 967 [sym_kInherited]; ACTIONS 943 [sym_kNil]; ACTIONS 941 [sym_kNot];
   ACTIONS 961 [sym_kProcedure]; ACTIONS 969 [sym_kRaise]; ACTIONS 971 [sym_kRepeat];
   ACTIONS 973 [sym_kString]; ACTIONS 975 [sym_kTry]; ACTIONS 2797 [sym_kUntil];
   ACTIONS 979 [sym_kVar]; ACTIONS 981 [sym_kWhile]; ACTIONS 983 [sym_kWith]].

(** State 399. *)
Definition ts_parse_table_399 : parse_row :=
  [STATE 6213 [sym_if]; STATE 6327 [sym_ifElse; sym_while; sym_repeat; sym_for; sym_foreach;
   sym_try; sym_case; sym_block; sym_asm; sym_with; sym_raise; sym_statement; sym_goto;
   sym__statement]; STATE 15991 [sym_ifTr; sym_ifElseTr; sym_whileTr; sym_repeatTr; sym_forTr;
   sym_foreachTr; sym_tryTr; sym_caseTr]; STATE 14251 [sym_blockTr]; STATE 15991 [sym_asmTr;
   sym_withTr; sym_raiseTr; sym_statementTr; sym_gotoTr; sym__statementTr];
   STATE 13915 [sym_assignment]; STATE 11785 [sym_varAssignDef]; STATE 13915 [sym_varDef;
   sym_constDef]; STATE 6166 [sym_label]; STATE 15991 [sym__statementsTr];
   STATE 14560 [sym_statementsTr]; STATE 8019 [sym__expr; sym_exprConditional];
   STATE 7478 [sym__ref; sym_lambda; sym_inherited; sym_exprDot; sym_exprDeref; sym_exprAs;
   sym_exprTpl; sym_exprSubscript; sym_exprCall]; STATE 8019 [sym_exprBinary; sym_exprUnary];
   STATE 7478 [sym_exprParens; sym_exprBrackets; sym__literal; sym_literalString];
   STATE 6664 [sym__literalString; sym_literalChar]; STATE 7478 [sym_literalNumber];
   STATE 7742 [sym__literalInt; sym__literalFloat]; STATE 1380 [sym__ppIf];
   STATE 6327 [sym__ppStatementBlock]; STATE 11840 [aux_sym_labeledStatement_repeat1];
   STATE 863 [aux_sym__statementsTr_repeat1]; STATE 6664 [aux_sym_literalString_repeat1];
   ACTIONS 397 [anon_sym_SEMI]; ACTIONS 399 [anon_sym_LBRACK]; ACTIONS 401 [anon_sym_LPAREN];
   ACTIONS 403 [aux_sym__literalString_token1]; ACTIONS 405 [anon_sym_POUND];
   ACTIONS 407 [aux_sym__literalInt_token1]; ACTIONS 409 [aux_sym__literalInt_token2;
   aux_sym__literalInt_token3]; ACTIONS 407 [aux_sym__literalFloat_token1];
   ACTIONS 411 [aux_sym_ppUsesBlock_token1]; ACTIONS 413 [sym_kAdd; sym_kSub];
   ACTIONS 415 [sym_kAt]; ACTIONS 417 [sym_kTrue; sym_kFalse]; ACTIONS 419 [sym_labelNumber];
   ACTIONS 3 [sym__space]; ACTIONS 5 [sym_ppDirective]; ACTIONS 3 [sym_comment];
   ACTIONS 417 [sym_ppFragmentExpr]; ACTIONS 397 [sym_ppFragmentStmt];
   ACTIONS 403 [sym__literalStringMultiline]; ACTIONS 421 [sym_identifier];
   ACTIONS 423 [sym_kSpecialize]; ACTIONS 427 [sym_kAsm]; ACTIONS 429 [sym_kBegin];
   ACTIONS 431 [sym_kCase]; ACTIONS 433 [sym_kConst]; ACTIONS 2799 [sym_kEnd];
   ACTIONS 437 [sym_kFor]; ACTIONS 439 [sym_kFunction]; ACTIONS 441 [sym_kGoto];
   ACTIONS 443 [sym_kIf]; ACTIONS 445 [sym_kInherited]; ACTIONS 417 [sym_kNil];
   ACTIONS 415 [sym_kNot]; ACTIONS 439 [sym_kProcedure]; ACTIONS 447 [sym_kRaise];
   ACTIONS 449 [sym_kRepeat]; ACTIONS 451 [sym_kString]; ACTIONS 453 [sym_kTry];
   ACTIONS 455 [sym_kVar]; ACTIONS 457 [sym_kWhile]; ACTIONS 459 [sym_kWith]].

(** State 400. *)
Definition ts_parse_table_400 : parse_row :=
  [STATE 6213 [sym_if]; STATE 6327 [sym_ifElse; sym_while; sym_repeat; sym_for; sym_foreach;
   sym_try; sym_case; sym_block; sym_asm; sym_with; sym_raise; sym_statement; sym_goto;
   sym__statement]; STATE 15991 [sym_ifTr; sym_ifElseTr; sym_whileTr; sym_repeatTr; sym_forTr;
   sym_foreachTr; sym_tryTr; sym_caseTr]; STATE 14251 [sym_blockTr]; STATE 15991 [sym_asmTr;
   sym_withTr; sym_raiseTr; sym_statementTr; sym_gotoTr; sym__statementTr];
   STATE 13915 [sym_assignment]; STATE 11785 [sym_varAssignDef]; STATE 13915 [sym_varDef;
   sym_constDef]; STATE 6166 [sym_label]; STATE 15991 [sym__statementsTr];
   STATE 14588 [sym_statementsTr]; STATE 8019 [sym__expr; sym_exprConditional];
   STATE 7478 [sym__ref; sym_lambda; sym_inherited; sym_exprDot; sym_exprDeref; sym_exprAs;
   sym_exprTpl; sym_exprSubscript; sym_exprCall]; STATE 8019 [sym_exprBinary; sym_exprUnary];
   STATE 7478 [sym_exprParens; sym_exprBrackets; sym__literal; sym_literalString];
   STATE 6664 [sym__literalString; sym_literalChar]; STATE 7478 [sym_literalNumber];
   STATE 7742 [sym__literalInt; sym__literalFloat]; STATE 1380 [sym__ppIf];
   STATE 6327 [sym__ppStatementBlock]; STATE 11840 [aux_sym_labeledStatement_repeat1];
   STATE 863 [aux_sym__statementsTr_repeat1]; STATE 6664 [aux_sym_literalString_repeat1];
   ACTIONS 397 [anon_sym_SEMI]; ACTIONS 399 [anon_sym_LBRACK]; ACTIONS 401 [anon_sym_LPAREN];
   ACTIONS 403 [aux_sym__literalString_token1]; ACTIONS 405 [anon_sym_POUND];
   ACTIONS 407 [aux_sym__literalInt_token1]; ACTIONS 409 [aux_sym__literalInt_token2;
   aux_sym__literalInt_token3]; ACTIONS 407 [aux_sym__literalFloat_token1];
   ACTIONS 411 [aux_sym_ppUsesBlock_token1]; ACTIONS 413 [sym_kAdd; sym_kSub];
   ACTIONS 415 [sym_kAt]; ACTIONS 417 [sym_kTrue; sym_kFalse]; ACTIONS 419 [sym_labelNumber];
   ACTIONS 3 [sym__space]; ACTIONS 5 [sym_ppDirective]; ACTIONS 3 [sym_comment];
   ACTIONS 417 [sym_ppFragmentExpr]; ACTIONS 397 [sym_ppFragmentStmt];
   ACTIONS 403 [sym__literalStringMultiline]; ACTIONS 421 [sym_identifier];
   ACTIONS 423 [sym_kSpecialize]; ACTIONS 427 [sym_kAsm]; ACTIONS 429 [sym_kBegin];
   ACTIONS 431 [sym_kCase]; ACTIONS 433 [sym_kConst]; ACTIONS 2801 [sym_kEnd];
   ACTIONS 437 [sym_kFor]; ACTIONS 439 [sym_kFunction]; ACTIONS 441 [sym_kGoto];
   ACTIONS 443 [sym_kIf]; ACTIONS 445 [sym_kInherited]; ACTIONS 417 [sym_kNil];
   ACTIONS 415 [sym_kNot]; ACTIONS 439 [sym_kProcedure]; ACTIONS 447 [sym_kRaise];
   ACTIONS 449 [sym_kRepeat]; ACTIONS 451 [sym_kString]; ACTIONS 453 [sym_kTry];
   ACTIONS 455 [sym_kVar]; ACTIONS 457 [sym_kWhile]; ACTIONS 459 [sym_kWith]].

(** State 401. *)
Definition ts_parse_table_401 : parse_row :=
  [STATE 6213 [sym_if]; STATE 6327 [sym_ifElse; sym_while; sym_repeat; sym_for; sym_foreach;
   sym_try; sym_case; sym_block; sym_asm; sym_with; sym_raise; sym_statement; sym_goto;
   sym__statement]; STATE 14600 [sym_ifTr; sym_ifElseTr; sym_whileTr; sym_repeatTr; sym_forTr;
   sym_foreachTr; sym_tryTr; sym_caseTr]; STATE 14251 [sym_blockTr]; STATE 14600 [sym_asmTr;
   sym_withTr; sym_raiseTr; sym_statementTr; sym_gotoTr; sym__statementTr];
   STATE 13915 [sym_assignment]; STATE 11785 [sym_varAssignDef]; STATE 13915 [sym_varDef;
   sym_constDef]; STATE 6166 [sym_label]; STATE 14600 [sym__statementsTr]; STATE 8019 [sym__expr;
   sym_exprConditional]; STATE 7478 [sym__ref; sym_lambda; sym_inherited; sym_exprDot;
   sym_exprDeref; sym_exprAs; sym_exprTpl; sym_exprSubscript; sym_exprCall];
   STATE 8019 [sym_exprBinary; sym_exprUnary]; STATE 7478 [sym_exprParens; sym_exprBrackets;
   sym__literal; sym_literalString]; STATE 6664 [sym__literalString; sym_literalChar];
   STATE 7478 [sym_literalNumber]; STATE 7742 [sym__literalInt; sym__literalFloat];
   STATE 1380 [sym__ppIf]; STATE 6327 [sym__ppStatementBlock];
   STATE 11840 [aux_sym_labeledStatement_repeat1]; STATE 863 [aux_sym__statementsTr_repeat1];
   STATE 6664 [aux_sym_literalString_repeat1]; ACTIONS 397 [anon_sym_SEMI];
   ACTIONS 2803 [anon_sym_COLON]; ACTIONS 399 [anon_sym_LBRACK]; ACTIONS 401 [anon_sym_LPAREN];
   ACTIONS 403 [aux_sym__literalString_token1]; ACTIONS 405 [anon_sym_POUND];
   ACTIONS 407 [aux_sym__literalInt_token1]; ACTIONS 409 [aux_sym__literalInt_token2;
   aux_sym__literalInt_token3]; ACTIONS 407 [aux_sym__literalFloat_token1];
   ACTIONS 411 [aux_sym_ppUsesBlock_token1]; ACTIONS 413 [sym_kAdd; sym_kSub];
   ACTIONS 415 [sym_kAt]; ACTIONS 417 [sym_kTrue; sym_kFalse]; ACTIONS 419 [sym_labelNumber];
   ACTIONS 3 [sym__space]; ACTIONS 5 [sym_ppDirective]; ACTIONS 3 [sym_comment];
   ACTIONS 417 [sym_ppFragmentExpr]; ACTIONS 397 [sym_ppFragmentStmt];
   ACTIONS 403 [sym__literalStringMultiline]; ACTIONS 421 [sym_identifier];
   ACTIONS 423 [sym_kSpecialize]; ACTIONS 427 [sym_kAsm]; ACTIONS 429 [sym_kBegin];
   ACTIONS 431 [sym_kCase]; ACTIONS 433 [sym_kConst]; ACTIONS 2805 [sym_kEnd];
   ACTIONS 437 [sym_kFor]; ACTIONS 439 [sym_kFunction]; ACTIONS 441 [sym_kGoto];
   ACTIONS 443 [sym_kIf]; ACTIONS 445 [sym_kInherited]; ACTIONS 417 [sym_kNil];
   ACTIONS 415 [sym_kNot]; ACTIONS 439 [sym_kProcedure]; ACTIONS 447 [sym_kRaise];
   ACTIONS 449 [sym_kRepeat]; ACTIONS 451 [sym_kString]; ACTIONS 453 [sym_kTry];
   ACTIONS 455 [sym_kVar]; ACTIONS 457 [sym_kWhile]; ACTIONS 459 [sym_kWith]].

(** State 402. *)
Definition ts_parse_table_402 : parse_row :=
  [STATE 6213 [sym_if]; STATE 6327 [sym_ifElse; sym_while; sym_repeat; sym_for; sym_foreach;
   sym_try; sym_case; sym_block; sym_asm; sym_with; sym_raise; sym_statement; sym_goto;
   sym__statement]; STATE 14605 [sym_ifTr; sym_ifElseTr; sym_whileTr; sym_repeatTr; sym_forTr;
   sym_foreachTr; sym_tryTr; sym_caseTr]; STATE 14251 [sym_blockTr]; STATE 14605 [sym_asmTr;
   sym_withTr; sym_raiseTr; sym_statementTr; sym_gotoTr; sym__statementTr];
   STATE 13915 [sym_assignment]; STATE 11785 [sym_varAssignDef]; STATE 13915 [sym_varDef;
   sym_constDef]; STATE 6166 [sym_label]; STATE 14605 [sym__statementsTr]; STATE 8019 [sym__expr;
   sym_exprConditional]; STATE 7478 [sym__ref; sym_lambda; sym_inherited; sym_exprDot;
   sym_exprDeref; sym_exprAs; sym_exprTpl; sym_exprSubscript; sym_exprCall];
   STATE 8019 [sym_exprBinary; sym_exprUnary]; STATE 7478 [sym_exprParens; sym_exprBrackets;
   sym__literal; sym_literalString]; STATE 6664 [sym__literalString; sym_literalChar];
   STATE 7478 [sym_literalNumber]; STATE 7742 [sym__literalInt; sym__literalFloat];
   STATE 1380 [sym__ppIf]; STATE 6327 [sym__ppStatementBlock];
   STATE 11840 [aux_sym_labeledStatement_repeat1]; STATE 863 [aux_sym__statementsTr_repeat1];
   STATE 6664 [aux_sym_literalString_repeat1]; ACTIONS 397 [anon_sym_SEMI];
   ACTIONS 2807 [anon_sym_COLON]; ACTIONS 399 [anon_sym_LBRACK]; ACTIONS 401 [anon_sym_LPAREN];
   ACTIONS 403 [aux_sym__literalString_token1]; ACTIONS 405 [anon_sym_POUND];
   ACTIONS 407 [aux_sym__literalInt_token1]; ACTIONS 409 [aux_sym__literalInt_token2;
   aux_sym__literalInt_token3]; ACTIONS 407 [aux_sym__literalFloat_token1];
   ACTIONS 411 [aux_sym_ppUsesBlock_token1]; ACTIONS 413 [sym_kAdd; sym_kSub];
   ACTIONS 415 [sym_kAt]; ACTIONS 417 [sym_kTrue; sym_kFalse]; ACTIONS 419 [sym_labelNumber];
   ACTIONS 3 [sym__space]; ACTIONS 5 [sym_ppDirective]; ACTIONS 3 [sym_comment];
   ACTIONS 417 [sym_ppFragmentExpr]; ACTIONS 397 [sym_ppFragmentStmt];
   ACTIONS 403 [sym__literalStringMultiline]; ACTIONS 421 [sym_identifier];
   ACTIONS 423 [sym_kSpecialize]; ACTIONS 427 [sym_kAsm]; ACTIONS 429 [sym_kBegin];
   ACTIONS 431 [sym_kCase]; ACTIONS 433 [sym_kConst]; ACTIONS 2809 [sym_kEnd];
   ACTIONS 437 [sym_kFor]; ACTIONS 439 [sym_kFunction]; ACTIONS 441 [sym_kGoto];
   ACTIONS 443 [sym_kIf]; ACTIONS 445 [sym_kInherited]; ACTIONS 417 [sym_kNil];
   ACTIONS 415 [sym_kNot]; ACTIONS 439 [sym_kProcedure]; ACTIONS 447 [sym_kRaise];
   ACTIONS 449 [sym_kRepeat]; ACTIONS 451 [sym_kString]; ACTIONS 453 [sym_kTry];
   ACTIONS 455 [sym_kVar]; ACTIONS 457 [sym_kWhile]; ACTIONS 459 [sym_kWith]].

(** State 403. *)
Definition ts_parse_table_403 : parse_row :=
  [STATE 6213 [sym_if]; STATE 6327 [sym_ifElse; sym_while; sym_repeat; sym_for; sym_foreach;
   sym_try; sym_case; sym_block; sym_asm; sym_with; sym_raise; sym_statement; sym_goto;
   sym__statement]; STATE 14608 [sym_ifTr; sym_ifElseTr; sym_whileTr; sym_repeatTr; sym_forTr;
   sym_foreachTr; sym_tryTr; sym_caseTr]; STATE 14251 [sym_blockTr]; STATE 14608 [sym_asmTr;
   sym_withTr; sym_raiseTr; sym_statementTr; sym_gotoTr; sym__statementTr];
   STATE 13915 [sym_assignment]; STATE 11785 [sym_varAssignDef]; STATE 13915 [sym_varDef;
   sym_constDef]; STATE 6166 [sym_label]; STATE 14608 [sym__statementsTr]; STATE 8019 [sym__expr;
   sym_exprConditional]; STATE 7478 [sym__ref; sym_lambda; sym_inherited; sym_exprDot;
   sym_exprDeref; sym_exprAs; sym_exprTpl; sym_exprSubscript; sym_exprCall];
   STATE 8019 [sym_exprBinary; sym_exprUnary]; STATE 7478 [sym_exprParens; sym_exprBrackets;
   sym__literal; sym_literalString]; STATE 6664 [sym__literalString; sym_literalChar];
   STATE 7478 [sym_literalNumber]; STATE 7742 [sym__literalInt; sym__literalFloat];
   STATE 1380 [sym__ppIf]; STATE 6327 [sym__ppStatementBlock];
   STATE 11840 [aux_sym_labeledStatement_repeat1]; STATE 863 [aux_sym__statementsTr_repeat1];
   STATE 6664 [aux_sym_literalString_repeat1]; ACTIONS 397 [anon_sym_SEMI];
   ACTIONS 2811 [anon_sym_COLON]; ACTIONS 399 [anon_sym_LBRACK]; ACTIONS 401 [anon_sym_LPAREN];
   ACTIONS 403 [aux_sym__literalString_token1]; ACTIONS 405 [anon_sym_POUND];
   ACTIONS 407 [aux_sym__literalInt_token1]; ACTIONS 409 [aux_sym__literalInt_token2;
   aux_sym__literalInt_token3]; ACTIONS 407 [aux_sym__literalFloat_token1];
   ACTIONS 411 [aux_sym_ppUsesBlock_token1]; ACTIONS 413 [sym_kAdd; sym_kSub];
   ACTIONS 415 [sym_kAt]; ACTIONS 417 [sym_kTrue; sym_kFalse]; ACTIONS 419 [sym_labelNumber];
   ACTIONS 3 [sym__space]; ACTIONS 5 [sym_ppDirective]; ACTIONS 3 [sym_comment];
   ACTIONS 417 [sym_ppFragmentExpr]; ACTIONS 397 [sym_ppFragmentStmt];
   ACTIONS 403 [sym__literalStringMultiline]; ACTIONS 421 [sym_identifier];
   ACTIONS 423 [sym_kSpecialize]; ACTIONS 427 [sym_kAsm]; ACTIONS 429 [sym_kBegin];
   ACTIONS 431 [sym_kCase]; ACTIONS 433 [sym_kConst]; ACTIONS 2813 [sym_kEnd];
   ACTIONS 437 [sym_kFor]; ACTIONS 439 [sym_kFunction]; ACTIONS 441 [sym_kGoto];
   ACTIONS 443 [sym_kIf]; ACTIONS 445 [sym_kInherited]; ACTIONS 417 [sym_kNil];
   ACTIONS 415 [sym_kNot]; ACTIONS 439 [sym_kProcedure]; ACTIONS 447 [sym_kRaise];
   ACTIONS 449 [sym_kRepeat]; ACTIONS 451 [sym_kString]; ACTIONS 453 [sym_kTry];
   ACTIONS 455 [sym_kVar]; ACTIONS 457 [sym_kWhile]; ACTIONS 459 [sym_kWith]].

(** State 404. *)
Definition ts_parse_table_404 : parse_row :=
  [STATE 6273 [sym_if]; STATE 6303 [sym_ifElse; sym_while; sym_repeat; sym_for; sym_foreach;
   sym_try; sym_case; sym_block; sym_asm; sym_with; sym_raise; sym_statement; sym_goto;
   sym__statement]; STATE 15875 [sym_ifTr; sym_ifElseTr; sym_whileTr; sym_repeatTr; sym_forTr;
   sym_foreachTr; sym_tryTr; sym_caseTr]; STATE 14967 [sym_blockTr]; STATE 15875 [sym_asmTr;
   sym_withTr; sym_raiseTr; sym_statementTr; sym_gotoTr; sym__statementTr];
   STATE 13420 [sym_assignment]; STATE 11684 [sym_varAssignDef]; STATE 13420 [sym_varDef;
   sym_constDef]; STATE 6307 [sym_label]; STATE 15875 [sym__statementsTr];
   STATE 14628 [sym_statementsTr]; STATE 8128 [sym__expr; sym_exprConditional];
   STATE 7533 [sym__ref; sym_lambda; sym_inherited; sym_exprDot; sym_exprDeref; sym_exprAs;
   sym_exprTpl; sym_exprSubscript; sym_exprCall]; STATE 8128 [sym_exprBinary; sym_exprUnary];
   STATE 7533 [sym_exprParens; sym_exprBrackets; sym__literal; sym_literalString];
   STATE 6915 [sym__literalString; sym_literalChar]; STATE 7533 [sym_literalNumber];
   STATE 7570 [sym__literalInt; sym__literalFloat]; STATE 1383 [sym__ppIf];
   STATE 6303 [sym__ppStatementBlock]; STATE 11951 [aux_sym_labeledStatement_repeat1];
   STATE 860 [aux_sym__statementsTr_repeat1]; STATE 6915 [aux_sym_literalString_repeat1];
   ACTIONS 925 [anon_sym_SEMI]; ACTIONS 927 [anon_sym_LBRACK]; ACTIONS 929 [anon_sym_LPAREN];
   ACTIONS 931 [aux_sym__literalString_token1]; ACTIONS 933 [anon_sym_POUND];
   ACTIONS 935 [aux_sym__literalInt_token1]; ACTIONS 937 [aux_sym__literalInt_token2;
   aux_sym__literalInt_token3]; ACTIONS 935 [aux_sym__literalFloat_token1];
   ACTIONS 411 [aux_sym_ppUsesBlock_token1]; ACTIONS 939 [sym_kAdd; sym_kSub];
   ACTIONS 941 [sym_kAt]; ACTIONS 943 [sym_kTrue; sym_kFalse]; ACTIONS 945 [sym_labelNumber];
   ACTIONS 3 [sym__space]; ACTIONS 5 [sym_ppDirective]; ACTIONS 3 [sym_comment];
   ACTIONS 943 [sym_ppFragmentExpr]; ACTIONS 925 [sym_ppFragmentStmt];
   ACTIONS 931 [sym__literalStringMultiline]; ACTIONS 947 [sym_identifier];
   ACTIONS 949 [sym_kSpecialize]; ACTIONS 951 [sym_kAsm]; ACTIONS 953 [sym_kBegin];
   ACTIONS 955 [sym_kCase]; ACTIONS 957 [sym_kConst]; ACTIONS 959 [sym_kFor];
   ACTIONS 961 [sym_kFunction]; ACTIONS 963 [sym_kGoto]; ACTIONS 965 [sym_kIf];
   ACTIONS 967 [sym_kInherited]; ACTIONS 943 [sym_kNil]; ACTIONS 941 [sym_kNot];
   ACTIONS 961 [sym_kProcedure]; ACTIONS 969 [sym_kRaise]; ACTIONS 971 [sym_kRepeat];
   ACTIONS 973 [sym_kString]; ACTIONS 975 [sym_kTry]; ACTIONS 2815 [sym_kUntil];
   ACTIONS 979 [sym_kVar]; ACTIONS 981 [sym_kWhile]; ACTIONS 983 [sym_kWith]].

(** State 405. *)
Definition ts_parse_table_405 : parse_row :=
  [STATE 6213 [sym_if]; STATE 6327 [sym_ifElse; sym_while; sym_repeat; sym_for; sym_foreach;
   sym_try; sym_case; sym_block; sym_asm; sym_with; sym_raise; sym_statement; sym_goto;
   sym__statement]; STATE 15991 [sym_ifTr; sym_ifElseTr; sym_whileTr; sym_repeatTr; sym_forTr;
   sym_foreachTr; sym_tryTr; sym_caseTr]; STATE 14251 [sym_blockTr]; STATE 15991 [sym_asmTr;
   sym_withTr; sym_raiseTr; sym_statementTr; sym_gotoTr; sym__statementTr];
   STATE 13915 [sym_assignment]; STATE 11785 [sym_varAssignDef]; STATE 13915 [sym_varDef;
   sym_constDef]; STATE 6166 [sym_label]; STATE 15991 [sym__statementsTr];
   STATE 14660 [sym_statementsTr]; STATE 8019 [sym__expr; sym_exprConditional];
   STATE 7478 [sym__ref; sym_lambda; sym_inherited; sym_exprDot; sym_exprDeref; sym_exprAs;
   sym_exprTpl; sym_exprSubscript; sym_exprCall]; STATE 8019 [sym_exprBinary; sym_exprUnary];
   STATE 7478 [sym_exprParens; sym_exprBrackets; sym__literal; sym_literalString];
   STATE 6664 [sym__literalString; sym_literalChar]; STATE 7478 [sym_literalNumber];
   STATE 7742 [sym__literalInt; sym__literalFloat]; STATE 1380 [sym__ppIf];
   STATE 6327 [sym__ppStatementBlock]; STATE 11840 [aux_sym_labeledStatement_repeat1];
   STATE 863 [aux_sym__statementsTr_repeat1]; STATE 6664 [aux_sym_literalString_repeat1];
   ACTIONS 397 [anon_sym_SEMI]; ACTIONS 399 [anon_sym_LBRACK]; ACTIONS 401 [anon_sym_LPAREN];
   ACTIONS 403 [aux_sym__literalString_token1]; ACTIONS 405 [anon_sym_POUND];
   ACTIONS 407 [aux_sym__literalInt_token1]; ACTIONS 409 [aux_sym__literalInt_token2;
   aux_sym__literalInt_token3]; ACTIONS 407 [aux_sym__literalFloat_token1];
   ACTIONS 411 [aux_sym_ppUsesBlock_token1]; ACTIONS 413 [sym_kAdd; sym_kSub];
   ACTIONS 415 [sym_kAt]; ACTIONS 417 [sym_kTrue; sym_kFalse]; ACTIONS 419 [sym_labelNumber];
   ACTIONS 3 [sym__space]; ACTIONS 5 [sym_ppDirective]; ACTIONS 3 [sym_comment];
   ACTIONS 417 [sym_ppFragmentExpr]; ACTIONS 397 [sym_ppFragmentStmt];
   ACTIONS 403 [sym__literalStringMultiline]; ACTIONS 421 [sym_identifier];
   ACTIONS 423 [sym_kSpecialize]; ACTIONS 427 [sym_kAsm]; ACTIONS 429 [sym_kBegin];
   ACTIONS 431 [sym_kCase]; ACTIONS 433 [sym_kConst]; ACTIONS 2817 [sym_kEnd];
   ACTIONS 437 [sym_kFor]; ACTIONS 439 [sym_kFunction]; ACTIONS 441 [sym_kGoto];
   ACTIONS 443 [sym_kIf]; ACTIONS 445 [sym_kInherited]; ACTIONS 417 [sym_kNil];
   ACTIONS 415 [sym_kNot]; ACTIONS 439 [sym_kProcedure]; ACTIONS 447 [sym_kRaise];
   ACTIONS 449 [sym_kRepeat]; ACTIONS 451 [sym_kString]; ACTIONS 453 [sym_kTry];
   ACTIONS 455 [sym_kVar]; ACTIONS 457 [sym_kWhile]; ACTIONS 459 [sym_kWith]].

(** State 406. *)
Definition ts_parse_table_406 : parse_row :=
  [STATE 6213 [sym_if]; STATE 6327 [sym_ifElse; sym_while; sym_repeat; sym_for; sym_foreach;
   sym_try; sym_case; sym_block; sym_asm; sym_with; sym_raise; sym_statement; sym_goto;
   sym__statement]; STATE 15991 [sym_ifTr; sym_ifElseTr; sym_whileTr; sym_repeatTr; sym_forTr;
   sym_foreachTr; sym_tryTr; sym_caseTr]; STATE 14251 [sym_blockTr]; STATE 15991 [sym_asmTr;
   sym_withTr; sym_raiseTr; sym_statementTr; sym_gotoTr; sym__statementTr];
   STATE 13915 [sym_assignment]; STATE 11785 [sym_varAssignDef]; STATE 13915 [sym_varDef;
   sym_constDef]; STATE 6166 [sym_label]; STATE 15991 [sym__statementsTr];
   STATE 14681 [sym_statementsTr]; STATE 8019 [sym__expr; sym_exprConditional];
   STATE 7478 [sym__ref; sym_lambda; sym_inherited; sym_exprDot; sym_exprDeref; sym_exprAs;
   sym_exprTpl; sym_exprSubscript; sym_exprCall]; STATE 8019 [sym_exprBinary; sym_exprUnary];
   STATE 7478 [sym_exprParens; sym_exprBrackets; sym__literal; sym_literalString];
   STATE 6664 [sym__literalString; sym_literalChar]; STATE 7478 [sym_literalNumber];
   STATE 7742 [sym__literalInt; sym__literalFloat]; STATE 1380 [sym__ppIf];
   STATE 6327 [sym__ppStatementBlock]; STATE 11840 [aux_sym_labeledStatement_repeat1];
   STATE 863 [aux_sym__statementsTr_repeat1]; STATE 6664 [aux_sym_literalString_repeat1];
   ACTIONS 397 [anon_sym_SEMI]; ACTIONS 399 [anon_sym_LBRACK]; ACTIONS 401 [anon_sym_LPAREN];
   ACTIONS 403 [aux_sym__literalString_token1]; ACTIONS 405 [anon_sym_POUND];
   ACTIONS 407 [aux_sym__literalInt_token1]; ACTIONS 409 [aux_sym__literalInt_token2;
   aux_sym__literalInt_token3]; ACTIONS 407 [aux_sym__literalFloat_token1];
   ACTIONS 411 [aux_sym_ppUsesBlock_token1]; ACTIONS 413 [sym_kAdd; sym_kSub];
   ACTIONS 415 [sym_kAt]; ACTIONS 417 [sym_kTrue; sym_kFalse]; ACTIONS 419 [sym_labelNumber];
   ACTIONS 3 [sym__space]; ACTIONS 5 [sym_ppDirective]; ACTIONS 3 [sym_comment];
   ACTIONS 417 [sym_ppFragmentExpr]; ACTIONS 397 [sym_ppFragmentStmt];
   ACTIONS 403 [sym__literalStringMultiline]; ACTIONS 421 [sym_identifier];
   ACTIONS 423 [sym_kSpecialize]; ACTIONS 427 [sym_kAsm]; ACTIONS 429 [sym_kBegin];
   ACTIONS 431 [sym_kCase]; ACTIONS 433 [sym_kConst]; ACTIONS 2819 [sym_kEnd];
   ACTIONS 437 [sym_kFor]; ACTIONS 439 [sym_kFunction]; ACTIONS 441 [sym_kGoto];
   ACTIONS 443 [sym_kIf]; ACTIONS 445 [sym_kInherited]; ACTIONS 417 [sym_kNil];
   ACTIONS 415 [sym_kNot]; ACTIONS 439 [sym_kProcedure]; ACTIONS 447 [sym_kRaise];
   ACTIONS 449 [sym_kRepeat]; ACTIONS 451 [sym_kString]; ACTIONS 453 [sym_kTry];
   ACTIONS 455 [sym_kVar]; ACTIONS 457 [sym_kWhile]; ACTIONS 459 [sym_kWith]].

(** State 407. *)
Definition ts_parse_table_407 : parse_row :=
  [STATE 6213 [sym_if]; STATE 6327 [sym_ifElse; sym_while; sym_repeat; sym_for; sym_foreach;
   sym_try; sym_case; sym_block; sym_asm; sym_with; sym_raise; sym_statement; sym_goto;
   sym__statement]; STATE 14688 [sym_ifTr; sym_ifElseTr; sym_whileTr; sym_repeatTr; sym_forTr;
   sym_foreachTr; sym_tryTr; sym_caseTr]; STATE 14251 [sym_blockTr]; STATE 14688 [sym_asmTr;
   sym_withTr; sym_raiseTr; sym_statementTr; sym_gotoTr; sym__statementTr];
   STATE 13915 [sym_assignment]; STATE 11785 [sym_varAssignDef]; STATE 13915 [sym_varDef;
   sym_constDef]; STATE 6166 [sym_label]; STATE 14688 [sym__statementsTr]; STATE 8019 [sym__expr;
   sym_exprConditional]; STATE 7478 [sym__ref; sym_lambda; sym_inherited; sym_exprDot;
   sym_exprDeref; sym_exprAs; sym_exprTpl; sym_exprSubscript; sym_exprCall];
   STATE 8019 [sym_exprBinary; sym_exprUnary]; STATE 7478 [sym_exprParens; sym_exprBrackets;
   sym__literal; sym_literalString]; STATE 6664 [sym__literalString; sym_literalChar];
   STATE 7478 [sym_literalNumber]; STATE 7742 [sym__literalInt; sym__literalFloat];
   STATE 1380 [sym__ppIf]; STATE 6327 [sym__ppStatementBlock];
   STATE 11840 [aux_sym_labeledStatement_repeat1]; STATE 863 [aux_sym__statementsTr_repeat1];
   STATE 6664 [aux_sym_literalString_repeat1]; ACTIONS 397 [anon_sym_SEMI];
   ACTIONS 2821 [anon_sym_COLON]; ACTIONS 399 [anon_sym_LBRACK]; ACTIONS 401 [anon_sym_LPAREN];
   ACTIONS 403 [aux_sym__literalString_token1]; ACTIONS 405 [anon_sym_POUND];
   ACTIONS 407 [aux_sym__literalInt_token1]; ACTIONS 409 [aux_sym__literalInt_token2;
   aux_sym__literalInt_token3]; ACTIONS 407 [aux_sym__literalFloat_token1];
   ACTIONS 411 [aux_sym_ppUsesBlock_token1]; ACTIONS 413 [sym_kAdd; sym_kSub];
   ACTIONS 415 [sym_kAt]; ACTIONS 417 [sym_kTrue; sym_kFalse]; ACTIONS 419 [sym_labelNumber];
   ACTIONS 3 [sym__space]; ACTIONS 5 [sym_ppDirective]; ACTIONS 3 [sym_comment];
   ACTIONS 417 [sym_ppFragmentExpr]; ACTIONS 397 [sym_ppFragmentStmt];
   ACTIONS 403 [sym__literalStringMultiline]; ACTIONS 421 [sym_identifier];
   ACTIONS 423 [sym_kSpecialize]; ACTIONS 427 [sym_kAsm]; ACTIONS 429 [sym_kBegin];
   ACTIONS 431 [sym_kCase]; ACTIONS 433 [sym_kConst]; ACTIONS 2823 [sym_kEnd];
   ACTIONS 437 [sym_kFor]; ACTIONS 439 [sym_kFunction]; ACTIONS 441 [sym_kGoto];
   ACTIONS 443 [sym_kIf]; ACTIONS 445 [sym_kInherited]; ACTIONS 417 [sym_kNil];
   ACTIONS 415 [sym_kNot]; ACTIONS 439 [sym_kProcedure]; ACTIONS 447 [sym_kRaise];
   ACTIONS 449 [sym_kRepeat]; ACTIONS 451 [sym_kString]; ACTIONS 453 [sym_kTry];
   ACTIONS 455 [sym_kVar]; ACTIONS 457 [sym_kWhile]; ACTIONS 459 [sym_kWith]].

(** State 408. *)
Definition ts_parse_table_408 : parse_row :=
  [STATE 6213 [sym_if]; STATE 6327 [sym_ifElse; sym_while; sym_repeat; sym_for; sym_foreach;
   sym_try; sym_case; sym_block; sym_asm; sym_with; sym_raise; sym_statement; sym_goto;
   sym__statement]; STATE 14691 [sym_ifTr; sym_ifElseTr; sym_whileTr; sym_repeatTr; sym_forTr;
   sym_foreachTr; sym_tryTr; sym_caseTr]; STATE 14251 [sym_blockTr]; STATE 14691 [sym_asmTr;
   sym_withTr; sym_raiseTr; sym_statementTr; sym_gotoTr; sym__statementTr];
   STATE 13915 [sym_assignment]; STATE 11785 [sym_varAssignDef]; STATE 13915 [sym_varDef;
   sym_constDef]; STATE 6166 [sym_label]; STATE 14691 [sym__statementsTr]; STATE 8019 [sym__expr;
   sym_exprConditional]; STATE 7478 [sym__ref; sym_lambda; sym_inherited; sym_exprDot;
   sym_exprDeref; sym_exprAs; sym_exprTpl; sym_exprSubscript; sym_exprCall];
   STATE 8019 [sym_exprBinary; sym_exprUnary]; STATE 7478 [sym_exprParens; sym_exprBrackets;
   sym__literal; sym_literalString]; STATE 6664 [sym__literalString; sym_literalChar];
   STATE 7478 [sym_literalNumber]; STATE 7742 [sym__literalInt; sym__literalFloat];
   STATE 1380 [sym__ppIf]; STATE 6327 [sym__ppStatementBlock];
   STATE 11840 [aux_sym_labeledStatement_repeat1]; STATE 863 [aux_sym__statementsTr_repeat1];
   STATE 6664 [aux_sym_literalString_repeat1]; ACTIONS 397 [anon_sym_SEMI];
   ACTIONS 2825 [anon_sym_COLON]; ACTIONS 399 [anon_sym_LBRACK]; ACTIONS 401 [anon_sym_LPAREN];
   ACTIONS 403 [aux_sym__literalString_token1]; ACTIONS 405 [anon_sym_POUND];
   ACTIONS 407 [aux_sym__literalInt_token1]; ACTIONS 409 [aux_sym__literalInt_token2;
   aux_sym__literalInt_token3]; ACTIONS 407 [aux_sym__literalFloat_token1];
   ACTIONS 411 [aux_sym_ppUsesBlock_token1]; ACTIONS 413 [sym_kAdd; sym_kSub];
   ACTIONS 415 [sym_kAt]; ACTIONS 417 [sym_kTrue; sym_kFalse]; ACTIONS 419 [sym_labelNumber];
   ACTIONS 3 [sym__space]; ACTIONS 5 [sym_ppDirective]; ACTIONS 3 [sym_comment];
   ACTIONS 417 [sym_ppFragmentExpr]; ACTIONS 397 [sym_ppFragmentStmt];
   ACTIONS 403 [sym__literalStringMultiline]; ACTIONS 421 [sym_identifier];
   ACTIONS 423 [sym_kSpecialize]; ACTIONS 427 [sym_kAsm]; ACTIONS 429 [sym_kBegin];
   ACTIONS 431 [sym_kCase]; ACTIONS 433 [sym_kConst]; ACTIONS 2827 [sym_kEnd];
   ACTIONS 437 [sym_kFor]; ACTIONS 439 [sym_kFunction]; ACTIONS 441 [sym_kGoto];
   ACTIONS 443 [sym_kIf]; ACTIONS 445 [sym_kInherited]; ACTIONS 417 [sym_kNil];
   ACTIONS 415 [sym_kNot]; ACTIONS 439 [sym_kProcedure]; ACTIONS 447 [sym_kRaise];
   ACTIONS 449 [sym_kRepeat]; ACTIONS 451 [sym_kString]; ACTIONS 453 [sym_kTry];
   ACTIONS 455 [sym_kVar]; ACTIONS 457 [sym_kWhile]; ACTIONS 459 [sym_kWith]].

(** State 409. *)
Definition ts_parse_table_409 : parse_row :=
  [STATE 6213 [sym_if]; STATE 6327 [sym_ifElse; sym_while; sym_repeat; sym_for; sym_foreach;
   sym_try; sym_case; sym_block; sym_asm; sym_with; sym_raise; sym_statement; sym_goto;
   sym__statement]; STATE 14694 [sym_ifTr; sym_ifElseTr; sym_whileTr; sym_repeatTr; sym_forTr;
   sym_foreachTr; sym_tryTr; sym_caseTr]; STATE 14251 [sym_blockTr]; STATE 14694 [sym_asmTr;
   sym_withTr; sym_raiseTr; sym_statementTr; sym_gotoTr; sym__statementTr];
   STATE 13915 [sym_assignment]; STATE 11785 [sym_varAssignDef]; STATE 13915 [sym_varDef;
   sym_constDef]; STATE 6166 [sym_label]; STATE 14694 [sym__statementsTr]; STATE 8019 [sym__expr;
   sym_exprConditional]; STATE 7478 [sym__ref; sym_lambda; sym_inherited; sym_exprDot;
   sym_exprDeref; sym_exprAs; sym_exprTpl; sym_exprSubscript; sym_exprCall];
   STATE 8019 [sym_exprBinary; sym_exprUnary]; STATE 7478 [sym_exprParens; sym_exprBrackets;
   sym__literal; sym_literalString]; STATE 6664 [sym__literalString; sym_literalChar];
   STATE 7478 [sym_literalNumber]; STATE 7742 [sym__literalInt; sym__literalFloat];
   STATE 1380 [sym__ppIf]; STATE 6327 [sym__ppStatementBlock];
   STATE 11840 [aux_sym_labeledStatement_repeat1]; STATE 863 [aux_sym__statementsTr_repeat1];
   STATE 6664 [aux_sym_literalString_repeat1]; ACTIONS 397 [anon_sym_SEMI];
   ACTIONS 2829 [anon_sym_COLON]; ACTIONS 399 [anon_sym_LBRACK]; ACTIONS 401 [anon_sym_LPAREN];
   ACTIONS 403 [aux_sym__literalString_token1]; ACTIONS 405 [anon_sym_POUND];
   ACTIONS 407 [aux_sym__literalInt_token1]; ACTIONS 409 [aux_sym__literalInt_token2;
   aux_sym__literalInt_token3]; ACTIONS 407 [aux_sym__literalFloat_token1];
   ACTIONS 411 [aux_sym_ppUsesBlock_token1]; ACTIONS 413 [sym_kAdd; sym_kSub];
   ACTIONS 415 [sym_kAt]; ACTIONS 417 [sym_kTrue; sym_kFalse]; ACTIONS 419 [sym_labelNumber];
   ACTIONS 3 [sym__space]; ACTIONS 5 [sym_ppDirective]; ACTIONS 3 [sym_comment];
   ACTIONS 417 [sym_ppFragmentExpr]; ACTIONS 397 [sym_ppFragmentStmt];
   ACTIONS 403 [sym__literalStringMultiline]; ACTIONS 421 [sym_identifier];
   ACTIONS 423 [sym_kSpecialize]; ACTIONS 427 [sym_kAsm]; ACTIONS 429 [sym_kBegin];
   ACTIONS 431 [sym_kCase]; ACTIONS 433 [sym_kConst]; ACTIONS 2831 [sym_kEnd];
   ACTIONS 437 [sym_kFor]; ACTIONS 439 [sym_kFunction]; ACTIONS 441 [sym_kGoto];
   ACTIONS 443 [sym_kIf]; ACTIONS 445 [sym_kInherited]; ACTIONS 417 [sym_kNil];
   ACTIONS 415 [sym_kNot]; ACTIONS 439 [sym_kProcedure]; ACTIONS 447 [sym_kRaise];
   ACTIONS 449 [sym_kRepeat]; ACTIONS 451 [sym_kString]; ACTIONS 453 [sym_kTry];
   ACTIONS 455 [sym_kVar]; ACTIONS 457 [sym_kWhile]; ACTIONS 459 [sym_kWith]].

(** State 410. *)
Definition ts_parse_table_410 : parse_row :=
  [STATE 6273 [sym_if]; STATE 6303 [sym_ifElse; sym_while; sym_repeat; sym_for; sym_foreach;
   sym_try; sym_case; sym_block; sym_asm; sym_with; sym_raise; sym_statement; sym_goto;
   sym__statement]; STATE 15875 [sym_ifTr; sym_ifElseTr; sym_whileTr; sym_repeatTr; sym_forTr;
   sym_foreachTr; sym_tryTr; sym_caseTr]; STATE 14967 [sym_blockTr]; STATE 15875 [sym_asmTr;
   sym_withTr; sym_raiseTr; sym_statementTr; sym_gotoTr; sym__statementTr];
   STATE 13420 [sym_assignment]; STATE 11684 [sym_varAssignDef]; STATE 13420 [sym_varDef;
   sym_constDef]; STATE 6307 [sym_label]; STATE 15875 [sym__statementsTr];
   STATE 14708 [sym_statementsTr]; STATE 8128 [sym__expr; sym_exprConditional];
   STATE 7533 [sym__ref; sym_lambda; sym_inherited; sym_exprDot; sym_exprDeref; sym_exprAs;
   sym_exprTpl; sym_exprSubscript; sym_exprCall]; STATE 8128 [sym_exprBinary; sym_exprUnary];
   STATE 7533 [sym_exprParens; sym_exprBrackets; sym__literal; sym_literalString];
   STATE 6915 [sym__literalString; sym_literalChar]; STATE 7533 [sym_literalNumber];
   STATE 7570 [sym__literalInt; sym__literalFloat]; STATE 1383 [sym__ppIf];
   STATE 6303 [sym__ppStatementBlock]; STATE 11951 [aux_sym_labeledStatement_repeat1];
   STATE 860 [aux_sym__statementsTr_repeat1]; STATE 6915 [aux_sym_literalString_repeat1];
   ACTIONS 925 [anon_sym_SEMI]; ACTIONS 927 [anon_sym_LBRACK]; ACTIONS 929 [anon_sym_LPAREN];
   ACTIONS 931 [aux_sym__literalString_token1]; ACTIONS 933 [anon_sym_POUND];
   ACTIONS 935 [aux_sym__literalInt_token1]; ACTIONS 937 [aux_sym__literalInt_token2;
   aux_sym__literalInt_token3]; ACTIONS 935 [aux_sym__literalFloat_token1];
   ACTIONS 411 [aux_sym_ppUsesBlock_token1]; ACTIONS 939 [sym_kAdd; sym_kSub];
   ACTIONS 941 [sym_kAt]; ACTIONS 943 [sym_kTrue; sym_kFalse]; ACTIONS 945 [sym_labelNumber];
   ACTIONS 3 [sym__space]; ACTIONS 5 [sym_ppDirective]; ACTIONS 3 [sym_comment];
   ACTIONS 943 [sym_ppFragmentExpr]; ACTIONS 925 [sym_ppFragmentStmt];
   ACTIONS 931 [sym__literalStringMultiline]; ACTIONS 947 [sym_identifier];
   ACTIONS 949 [sym_kSpecialize]; ACTIONS 951 [sym_kAsm]; ACTIONS 953 [sym_kBegin];
   ACTIONS 955 [sym_kCase]; ACTIONS 957 [sym_kConst]; ACTIONS 959 [sym_kFor];
   ACTIONS 961 [sym_kFunction]; ACTIONS 963 [sym_kGoto]; ACTIONS 965 [sym_kIf];
   ACTIONS 967 [sym_kInherited]; ACTIONS 943 [sym_kNil]; ACTIONS 941 [sym_kNot];
   ACTIONS 961 [sym_kProcedure]; ACTIONS 969 [sym_kRaise]; ACTIONS 971 [sym_kRepeat];
   ACTIONS 973 [sym_kString]; ACTIONS 975 [sym_kTry]; ACTIONS 2833 [sym_kUntil];
   ACTIONS 979 [sym_kVar]; ACTIONS 981 [sym_kWhile]; ACTIONS 983 [sym_kWith]].

(** State 411. *)
Definition ts_parse_table_411 : parse_row :=
  [STATE 6273 [sym_if]; STATE 6303 [sym_ifElse; sym_while; sym_repeat; sym_for; sym_foreach;
   sym_try; sym_case; sym_block; sym_asm; sym_with; sym_raise; sym_statement; sym_goto;
   sym__statement]; STATE 15875 [sym_ifTr; sym_ifElseTr; sym_whileTr; sym_repeatTr; sym_forTr;
   sym_foreachTr; sym_tryTr; sym_caseTr]; STATE 14967 [sym_blockTr]; STATE 15875 [sym_asmTr;
   sym_withTr; sym_raiseTr; sym_statementTr; sym_gotoTr; sym__statementTr];
   STATE 13420 [sym_assignment]; STATE 11684 [sym_varAssignDef]; STATE 13420 [sym_varDef;
   sym_constDef]; STATE 6307 [sym_label]; STATE 15875 [sym__statementsTr];
   STATE 14742 [sym_statementsTr]; STATE 8128 [sym__expr; sym_exprConditional];
   STATE 7533 [sym__ref; sym_lambda; sym_inherited; sym_exprDot; sym_exprDeref; sym_exprAs;
   sym_exprTpl; sym_exprSubscript; sym_exprCall]; STATE 8128 [sym_exprBinary; sym_exprUnary];
   STATE 7533 [sym_exprParens; sym_exprBrackets; sym__literal; sym_literalString];
   STATE 6915 [sym__literalString; sym_literalChar]; STATE 7533 [sym_literalNumber];
   STATE 7570 [sym__literalInt; sym__literalFloat]; STATE 1383 [sym__ppIf];
   STATE 6303 [sym__ppStatementBlock]; STATE 11951 [aux_sym_labeledStatement_repeat1];
   STATE 860 [aux_sym__statementsTr_repeat1]; STATE 6915 [aux_sym_literalString_repeat1];
   ACTIONS 925 [anon_sym_SEMI]; ACTIONS 927 [anon_sym_LBRACK]; ACTIONS 929 [anon_sym_LPAREN];
   ACTIONS 931 [aux_sym__literalString_token1]; ACTIONS 933 [anon_sym_POUND];
   ACTIONS 935 [aux_sym__literalInt_token1]; ACTIONS 937 [aux_sym__literalInt_token2;
   aux_sym__literalInt_token3]; ACTIONS 935 [aux_sym__literalFloat_token1];
   ACTIONS 411 [aux_sym_ppUsesBlock_token1]; ACTIONS 939 [sym_kAdd; sym_kSub];
   ACTIONS 941 [sym_kAt]; ACTIONS 943 [sym_kTrue; sym_kFalse]; ACTIONS 945 [sym_labelNumber];
   ACTIONS 3 [sym__space]; ACTIONS 5 [sym_ppDirective]; ACTIONS 3 [sym_comment];
   ACTIONS 943 [sym_ppFragmentExpr]; ACTIONS 925 [sym_ppFragmentStmt];
   ACTIONS 931 [sym__literalStringMultiline]; ACTIONS 947 [sym_identifier];
   ACTIONS 949 [sym_kSpecialize]; ACTIONS 951 [sym_kAsm]; ACTIONS 953 [sym_kBegin];
   ACTIONS 955 [sym_kCase]; ACTIONS 957 [sym_kConst]; ACTIONS 959 [sym_kFor];
   ACTIONS 961 [sym_kFunction]; ACTIONS 963 [sym_kGoto]; ACTIONS 965 [sym_kIf];
   ACTIONS 967 [sym_kInherited]; ACTIONS 943 [sym_kNil]; ACTIONS 941 [sym_kNot];
   ACTIONS 961 [sym_kProcedure]; ACTIONS 969 [sym_kRaise]; ACTIONS 971 [sym_kRepeat];
   ACTIONS 973 [sym_kString]; ACTIONS 975 [sym_kTry]; ACTIONS 2835 [sym_kUntil];
   ACTIONS 979 [sym_kVar]; ACTIONS 981 [sym_kWhile]; ACTIONS 983 [sym_kWith]].

(** State 412. *)
Definition ts_parse_table_412 : parse_row :=
  [STATE 6273 [sym_if]; STATE 6303 [sym_ifElse; sym_while; sym_repeat; sym_for; sym_foreach;
   sym_try; sym_case; sym_block; sym_asm; sym_with; sym_raise; sym_statement; sym_goto;
   sym__statement]; STATE 15875 [sym_ifTr; sym_ifElseTr; sym_whileTr; sym_repeatTr; sym_forTr;
   sym_foreachTr; sym_tryTr; sym_caseTr]; STATE 14967 [sym_blockTr]; STATE 15875 [sym_asmTr;
   sym_withTr; sym_raiseTr; sym_statementTr; sym_gotoTr; sym__statementTr];
   STATE 13420 [sym_assignment]; STATE 11684 [sym_varAssignDef]; STATE 13420 [sym_varDef;
   sym_constDef]; STATE 6307 [sym_label]; STATE 15875 [sym__statementsTr];
   STATE 14776 [sym_statementsTr]; STATE 8128 [sym__expr; sym_exprConditional];
   STATE 7533 [sym__ref; sym_lambda; sym_inherited; sym_exprDot; sym_exprDeref; sym_exprAs;
   sym_exprTpl; sym_exprSubscript; sym_exprCall]; STATE 8128 [sym_exprBinary; sym_exprUnary];
   STATE 7533 [sym_exprParens; sym_exprBrackets; sym__literal; sym_literalString];
   STATE 6915 [sym__literalString; sym_literalChar]; STATE 7533 [sym_literalNumber];
   STATE 7570 [sym__literalInt; sym__literalFloat]; STATE 1383 [sym__ppIf];
   STATE 6303 [sym__ppStatementBlock]; STATE 11951 [aux_sym_labeledStatement_repeat1];
   STATE 860 [aux_sym__statementsTr_repeat1]; STATE 6915 [aux_sym_literalString_repeat1];
   ACTIONS 925 [anon_sym_SEMI]; ACTIONS 927 [anon_sym_LBRACK]; ACTIONS 929 [anon_sym_LPAREN];
   ACTIONS 931 [aux_sym__literalString_token1]; ACTIONS 933 [anon_sym_POUND];
   ACTIONS 935 [aux_sym__literalInt_token1]; ACTIONS 937 [aux_sym__literalInt_token2;
   aux_sym__literalInt_token3]; ACTIONS 935 [aux_sym__literalFloat_token1];
   ACTIONS 411 [aux_sym_ppUsesBlock_token1]; ACTIONS 939 [sym_kAdd; sym_kSub];
   ACTIONS 941 [sym_kAt]; ACTIONS 943 [sym_kTrue; sym_kFalse]; ACTIONS 945 [sym_labelNumber];
   ACTIONS 3 [sym__space]; ACTIONS 5 [sym_ppDirective]; ACTIONS 3 [sym_comment];
   ACTIONS 943 [sym_ppFragmentExpr]; ACTIONS 925 [sym_ppFragmentStmt];
   ACTIONS 931 [sym__literalStringMultiline]; ACTIONS 947 [sym_identifier];
   ACTIONS 949 [sym_kSpecialize]; ACTIONS 951 [sym_kAsm]; ACTIONS 953 [sym_kBegin];
   ACTIONS 955 [sym_kCase]; ACTIONS 957 [sym_kConst]; ACTIONS 959 [sym_kFor];
   ACTIONS 961 [sym_kFunction]; ACTIONS 963 [sym_kGoto]; ACTIONS 965 [sym_kIf];
   ACTIONS 967 [sym_kInherited]; ACTIONS 943 [sym_kNil]; ACTIONS 941 [sym_kNot];
   ACTIONS 961 [sym_kProcedure]; ACTIONS 969 [sym_kRaise]; ACTIONS 971 [sym_kRepeat];
   ACTIONS 973 [sym_kString]; ACTIONS 975 [sym_kTry]; ACTIONS 2837 [sym_kUntil];
   ACTIONS 979 [sym_kVar]; ACTIONS 981 [sym_kWhile]; ACTIONS 983 [sym_kWith]].

(** State 413. *)
Definition ts_parse_table_413 : parse_row :=
  [STATE 6273 [sym_if]; STATE 6303 [sym_ifElse; sym_while; sym_repeat; sym_for; sym_foreach;
   sym_try; sym_case; sym_block; sym_asm; sym_with; sym_raise; sym_statement; sym_goto;
   sym__statement]; STATE 15875 [sym_ifTr; sym_ifElseTr; sym_whileTr; sym_repeatTr; sym_forTr;
   sym_foreachTr; sym_tryTr; sym_caseTr]; STATE 14967 [sym_blockTr]; STATE 15875 [sym_asmTr;
   sym_withTr; sym_raiseTr; sym_statementTr; sym_gotoTr; sym__statementTr];
   STATE 13420 [sym_assignment]; STATE 11684 [sym_varAssignDef]; STATE 13420 [sym_varDef;
   sym_constDef]; STATE 6307 [sym_label]; STATE 15875 [sym__statementsTr];
   STATE 15687 [sym_statementsTr]; STATE 8128 [sym__expr; sym_exprConditional];
   STATE 7533 [sym__ref; sym_lambda; sym_inherited; sym_exprDot; sym_exprDeref; sym_exprAs;
   sym_exprTpl; sym_exprSubscript; sym_exprCall]; STATE 8128 [sym_exprBinary; sym_exprUnary];
   STATE 7533 [sym_exprParens; sym_exprBrackets; sym__literal; sym_literalString];
   STATE 6915 [sym__literalString; sym_literalChar]; STATE 7533 [sym_literalNumber];
   STATE 7570 [sym__literalInt; sym__literalFloat]; STATE 1383 [sym__ppIf];
   STATE 6303 [sym__ppStatementBlock]; STATE 11951 [aux_sym_labeledStatement_repeat1];
   STATE 860 [aux_sym__statementsTr_repeat1]; STATE 6915 [aux_sym_literalString_repeat1];
   ACTIONS 925 [anon_sym_SEMI]; ACTIONS 927 [anon_sym_LBRACK]; ACTIONS 929 [anon_sym_LPAREN];
   ACTIONS 931 [aux_sym__literalString_token1]; ACTIONS 933 [anon_sym_POUND];
   ACTIONS 935 [aux_sym__literalInt_token1]; ACTIONS 937 [aux_sym__literalInt_token2;
   aux_sym__literalInt_token3]; ACTIONS 935 [aux_sym__literalFloat_token1];
   ACTIONS 411 [aux_sym_ppUsesBlock_token1]; ACTIONS 939 [sym_kAdd; sym_kSub];
   ACTIONS 941 [sym_kAt]; ACTIONS 943 [sym_kTrue; sym_kFalse]; ACTIONS 945 [sym_labelNumber];
   ACTIONS 3 [sym__space]; ACTIONS 5 [sym_ppDirective]; ACTIONS 3 [sym_comment];
   ACTIONS 943 [sym_ppFragmentExpr]; ACTIONS 925 [sym_ppFragmentStmt];
   ACTIONS 931 [sym__literalStringMultiline]; ACTIONS 947 [sym_identifier];
   ACTIONS 949 [sym_kSpecialize]; ACTIONS 951 [sym_kAsm]; ACTIONS 953 [sym_kBegin];
   ACTIONS 955 [sym_kCase]; ACTIONS 957 [sym_kConst]; ACTIONS 959 [sym_kFor];
   ACTIONS 961 [sym_kFunction]; ACTIONS 963 [sym_kGoto]; ACTIONS 965 [sym_kIf];
   ACTIONS 967 [sym_kInherited]; ACTIONS 943 [sym_kNil]; ACTIONS 941 [sym_kNot];
   ACTIONS 961 [sym_kProcedure]; ACTIONS 969 [sym_kRaise]; ACTIONS 971 [sym_kRepeat];
   ACTIONS 973 [sym_kString]; ACTIONS 975 [sym_kTry]; ACTIONS 2839 [sym_kUntil];
   ACTIONS 979 [sym_kVar]; ACTIONS 981 [sym_kWhile]; ACTIONS 983 [sym_kWith]].

(** State 414. *)
Definition ts_parse_table_414 : parse_row :=
  [STATE 2899 [sym__ppIf]; STATE 996 [sym__procAttributeNoExt];
   STATE 1005 [sym__procAttributesPp]; STATE 15262 [sym_procAttribute];
   STATE 183 [aux_sym__declProc_repeat1]; ACTIONS 2841 [anon_sym_SEMI; anon_sym_COMMA];
   ACTIONS 2843 [anon_sym_LBRACK]; ACTIONS 2846 [anon_sym_LPAREN];
   ACTIONS 2841 [aux_sym__literalString_token1; anon_sym_POUND];
   ACTIONS 2846 [aux_sym__literalInt_token1]; ACTIONS 2841 [aux_sym__literalInt_token2;
   aux_sym__literalInt_token3]; ACTIONS 2846 [aux_sym__literalFloat_token1];
   ACTIONS 2848 [aux_sym_ppUsesBlock_token1]; ACTIONS 2841 [aux_sym_ppUsesBlock_token2;
   aux_sym_ppUsesBlock_token3]; ACTIONS 2846 [sym_kAdd; sym_kSub]; ACTIONS 2841 [sym_kAt;
   sym_kTrue; sym_kFalse]; ACTIONS 3 [sym__space]; ACTIONS 5 [sym_ppDirective];
   ACTIONS 3 [sym_comment]; ACTIONS 2841 [sym_ppFragmentExpr; sym__literalStringMultiline;
   sym_identifier]; ACTIONS 2851 [sym_kDefault; sym_kNodefault]; ACTIONS 2854 [sym_kDispId];
   ACTIONS 2841 [sym_kGeneric; sym_kSpecialize; sym_kOperator]; ACTIONS 2857 [sym_kPublic];
   ACTIONS 2841 [sym_kForward]; ACTIONS 2851 [sym_kStatic; sym_kVirtual; sym_kAbstract;
   sym_kDynamic; sym_kOverride; sym_kOverload; sym_kReintroduce; sym_kStdcall; sym_kCdecl;
   sym_kCppdecl; sym_kPascal; sym_kRegister; sym_kMwpascal]; ACTIONS 2841 [sym_kExternal];
   ACTIONS 2860 [sym_kMessage]; ACTIONS 2863 [sym_kDeprecated]; ACTIONS 2851 [sym_kExperimental;
   sym_kPlatform; sym_kUnimplemented; sym_kCvar]; ACTIONS 2866 [sym_kExport];
   ACTIONS 2851 [sym_kFar; sym_kNear; sym_kSafecall; sym_kAssembler; sym_kNostackframe;
   sym_kInterrupt; sym_kNoreturn; sym_kIocheck; sym_kLocal; sym_kHardfloat; sym_kSoftfloat;
   sym_kMs_abi_default; sym_kMs_abi_cdecl; sym_kSaveregisters; sym_kSysv_abi_default;
   sym_kSysv_abi_cdecl; sym_kVectorcall; sym_kVarargs; sym_kWinapi]; ACTIONS 2869 [sym_kAlias];
   ACTIONS 2841 [sym_kAsm; sym_kBegin; sym_kCase; sym_kClass; sym_kConst; sym_kConstructor;
   sym_kDestructor; sym_kExports; sym_kFor; sym_kFunction; sym_kGoto; sym_kIf; sym_kInherited];
   ACTIONS 1016 [sym_kInline]; ACTIONS 2841 [sym_kLabel; sym_kNil; sym_kNot; sym_kProcedure;
   sym_kProperty; sym_kRaise; sym_kRepeat; sym_kResourcestring; sym_kString; sym_kThreadvar;
   sym_kTry; sym_kType; sym_kUses; sym_kVar; sym_kWhile; sym_kWith]].

(** State 415. *)
Definition ts_parse_table_415 : parse_row :=
  [STATE 6273 [sym_if]; STATE 6303 [sym_ifElse; sym_while; sym_repeat; sym_for; sym_foreach;
   sym_try; sym_case; sym_block; sym_asm; sym_with; sym_raise; sym_statement; sym_goto;
   sym__statement]; STATE 15875 [sym_ifTr; sym_ifElseTr; sym_whileTr; sym_repeatTr; sym_forTr;
   sym_foreachTr; sym_tryTr; sym_caseTr]; STATE 14967 [sym_blockTr]; STATE 15875 [sym_asmTr;
   sym_withTr; sym_raiseTr; sym_statementTr; sym_gotoTr; sym__statementTr];
   STATE 13420 [sym_assignment]; STATE 11684 [sym_varAssignDef]; STATE 13420 [sym_varDef;
   sym_constDef]; STATE 6307 [sym_label]; STATE 15875 [sym__statementsTr];
   STATE 14835 [sym_statementsTr]; STATE 8128 [sym__expr; sym_exprConditional];
   STATE 7533 [sym__ref; sym_lambda; sym_inherited; sym_exprDot; sym_exprDeref; sym_exprAs;
   sym_exprTpl; sym_exprSubscript; sym_exprCall]; STATE 8128 [sym_exprBinary; sym_exprUnary];
   STATE 7533 [sym_exprParens; sym_exprBrackets; sym__literal; sym_literalString];
   STATE 6915 [sym__literalString; sym_literalChar]; STATE 7533 [sym_literalNumber];
   STATE 7570 [sym__literalInt; sym__literalFloat]; STATE 1383 [sym__ppIf];
   STATE 6303 [sym__ppStatementBlock]; STATE 11951 [aux_sym_labeledStatement_repeat1];
   STATE 860 [aux_sym__statementsTr_repeat1]; STATE 6915 [aux_sym_literalString_repeat1];
   ACTIONS 925 [anon_sym_SEMI]; ACTIONS 927 [anon_sym_LBRACK]; ACTIONS 929 [anon_sym_LPAREN];
   ACTIONS 931 [aux_sym__literalString_token1]; ACTIONS 933 [anon_sym_POUND];
   ACTIONS 935 [aux_sym__literalInt_token1]; ACTIONS 937 [aux_sym__literalInt_token2;
   aux_sym__literalInt_token3]; ACTIONS 935 [aux_sym__literalFloat_token1];
   ACTIONS 411 [aux_sym_ppUsesBlock_token1]; ACTIONS 939 [sym_kAdd; sym_kSub];
   ACTIONS 941 [sym_kAt]; ACTIONS 943 [sym_kTrue; sym_kFalse]; ACTIONS 945 [sym_labelNumber];
   ACTIONS 3 [sym__space]; ACTIONS 5 [sym_ppDirective]; ACTIONS 3 [sym_comment];
   ACTIONS 943 [sym_ppFragmentExpr]; ACTIONS 925 [sym_ppFragmentStmt];
   ACTIONS 931 [sym__literalStringMultiline]; ACTIONS 947 [sym_identifier];
   ACTIONS 949 [sym_kSpecialize]; ACTIONS 951 [sym_kAsm]; ACTIONS 953 [sym_kBegin];
   ACTIONS 955 [sym_kCase]; ACTIONS 957 [sym_kConst]; ACTIONS 959 [sym_kFor];
   ACTIONS 961 [sym_kFunction]; ACTIONS 963 [sym_kGoto]; ACTIONS 965 [sym_kIf];
   ACTIONS 967 [sym_kInherited]; ACTIONS 943 [sym_kNil]; ACTIONS 941 [sym_kNot];
   ACTIONS 961 [sym_kProcedure]; ACTIONS 969 [sym_kRaise]; ACTIONS 971 [sym_kRepeat];
   ACTIONS 973 [sym_kString]; ACTIONS 975 [sym_kTry]; ACTIONS 2872 [sym_kUntil];
   ACTIONS 979 [sym_kVar]; ACTIONS 981 [sym_kWhile]; ACTIONS 983 [sym_kWith]].

(** State 416. *)
Definition ts_parse_table_416 : parse_row :=
  [STATE 2899 [sym__ppIf]; STATE 996 [sym__procAttributeNoExt];
   STATE 1005 [sym__procAttributesPp]; STATE 15262 [sym_procAttribute];
   STATE 183 [aux_sym__declProc_repeat1]; ACTIONS 2874 [anon_sym_SEMI; anon_sym_COMMA];
   ACTIONS 2876 [anon_sym_LBRACK]; ACTIONS 2879 [anon_sym_LPAREN];
   ACTIONS 2874 [aux_sym__literalString_token1; anon_sym_POUND];
   ACTIONS 2879 [aux_sym__literalInt_token1]; ACTIONS 2874 [aux_sym__literalInt_token2;
   aux_sym__literalInt_token3]; ACTIONS 2879 [aux_sym__literalFloat_token1];
   ACTIONS 2881 [aux_sym_ppUsesBlock_token1]; ACTIONS 2874 [aux_sym_ppUsesBlock_token2;
   aux_sym_ppUsesBlock_token3]; ACTIONS 2879 [sym_kAdd; sym_kSub]; ACTIONS 2874 [sym_kAt;
   sym_kTrue; sym_kFalse]; ACTIONS 3 [sym__space]; ACTIONS 5 [sym_ppDirective];
   ACTIONS 3 [sym_comment]; ACTIONS 2874 [sym_ppFragmentExpr; sym__literalStringMultiline;
   sym_identifier]; ACTIONS 2884 [sym_kDefault; sym_kNodefault]; ACTIONS 2887 [sym_kDispId];
   ACTIONS 2874 [sym_kGeneric; sym_kSpecialize; sym_kOperator]; ACTIONS 2890 [sym_kPublic];
   ACTIONS 2874 [sym_kForward]; ACTIONS 2884 [sym_kStatic; sym_kVirtual; sym_kAbstract;
   sym_kDynamic; sym_kOverride; sym_kOverload; sym_kReintroduce; sym_kStdcall; sym_kCdecl;
   sym_kCppdecl; sym_kPascal; sym_kRegister; sym_kMwpascal]; ACTIONS 2874 [sym_kExternal];
   ACTIONS 2893 [sym_kMessage]; ACTIONS 2896 [sym_kDeprecated]; ACTIONS 2884 [sym_kExperimental;
   sym_kPlatform; sym_kUnimplemented; sym_kCvar]; ACTIONS 2899 [sym_kExport];
   ACTIONS 2884 [sym_kFar; sym_kNear; sym_kSafecall; sym_kAssembler; sym_kNostackframe;
   sym_kInterrupt; sym_kNoreturn; sym_kIocheck; sym_kLocal; sym_kHardfloat; sym_kSoftfloat;
   sym_kMs_abi_default; sym_kMs_abi_cdecl; sym_kSaveregisters; sym_kSysv_abi_default;
   sym_kSysv_abi_cdecl; sym_kVectorcall; sym_kVarargs; sym_kWinapi]; ACTIONS 2902 [sym_kAlias];
   ACTIONS 2874 [sym_kAsm; sym_kBegin; sym_kCase; sym_kClass; sym_kConst; sym_kConstructor;
   sym_kDestructor; sym_kExports; sym_kFor; sym_kFunction; sym_kGoto; sym_kIf; sym_kInherited];
   ACTIONS 1016 [sym_kInline]; ACTIONS 2874 [sym_kLabel; sym_kNil; sym_kNot; sym_kProcedure;
   sym_kProperty; sym_kRaise; sym_kRepeat; sym_kResourcestring; sym_kString; sym_kThreadvar;
   sym_kTry; sym_kType; sym_kUses; sym_kVar; sym_kWhile; sym_kWith]].

(** State 417. *)
Definition ts_parse_table_417 : parse_row :=
  [STATE 6273 [sym_if]; STATE 6303 [sym_ifElse; sym_while; sym_repeat; sym_for; sym_foreach;
   sym_try; sym_case; sym_block; sym_asm; sym_with; sym_raise; sym_statement; sym_goto;
   sym__statement]; STATE 15875 [sym_ifTr; sym_ifElseTr; sym_whileTr; sym_repeatTr; sym_forTr;
   sym_foreachTr; sym_tryTr; sym_caseTr]; STATE 14967 [sym_blockTr]; STATE 15875 [sym_asmTr;
   sym_withTr; sym_raiseTr; sym_statementTr; sym_gotoTr; sym__statementTr];
   STATE 13420 [sym_assignment]; STATE 11684 [sym_varAssignDef]; STATE 13420 [sym_varDef;
   sym_constDef]; STATE 6307 [sym_label]; STATE 15875 [sym__statementsTr];
   STATE 14862 [sym_statementsTr]; STATE 8128 [sym__expr; sym_exprConditional];
   STATE 7533 [sym__ref; sym_lambda; sym_inherited; sym_exprDot; sym_exprDeref; sym_exprAs;
   sym_exprTpl; sym_exprSubscript; sym_exprCall]; STATE 8128 [sym_exprBinary; sym_exprUnary];
   STATE 7533 [sym_exprParens; sym_exprBrackets; sym__literal; sym_literalString];
   STATE 6915 [sym__literalString; sym_literalChar]; STATE 7533 [sym_literalNumber];
   STATE 7570 [sym__literalInt; sym__literalFloat]; STATE 1383 [sym__ppIf];
   STATE 6303 [sym__ppStatementBlock]; STATE 11951 [aux_sym_labeledStatement_repeat1];
   STATE 860 [aux_sym__statementsTr_repeat1]; STATE 6915 [aux_sym_literalString_repeat1];
   ACTIONS 925 [anon_sym_SEMI]; ACTIONS 927 [anon_sym_LBRACK]; ACTIONS 929 [anon_sym_LPAREN];
   ACTIONS 931 [aux_sym__literalString_token1]; ACTIONS 933 [anon_sym_POUND];
   ACTIONS 935 [aux_sym__literalInt_token1]; ACTIONS 937 [aux_sym__literalInt_token2;
   aux_sym__literalInt_token3]; ACTIONS 935 [aux_sym__literalFloat_token1];
   ACTIONS 411 [aux_sym_ppUsesBlock_token1]; ACTIONS 939 [sym_kAdd; sym_kSub];
   ACTIONS 941 [sym_kAt]; ACTIONS 943 [sym_kTrue; sym_kFalse]; ACTIONS 945 [sym_labelNumber];
   ACTIONS 3 [sym__space]; ACTIONS 5 [sym_ppDirective]; ACTIONS 3 [sym_comment];
   ACTIONS 943 [sym_ppFragmentExpr]; ACTIONS 925 [sym_ppFragmentStmt];
   ACTIONS 931 [sym__literalStringMultiline]; ACTIONS 947 [sym_identifier];
   ACTIONS 949 [sym_kSpecialize]; ACTIONS 951 [sym_kAsm]; ACTIONS 953 [sym_kBegin];
   ACTIONS 955 [sym_kCase]; ACTIONS 957 [sym_kConst]; ACTIONS 959 [sym_kFor];
   ACTIONS 961 [sym_kFunction]; ACTIONS 963 [sym_kGoto]; ACTIONS 965 [sym_kIf];
   ACTIONS 967 [sym_kInherited]; ACTIONS 943 [sym_kNil]; ACTIONS 941 [sym_kNot];
   ACTIONS 961 [sym_kProcedure]; ACTIONS 969 [sym_kRaise]; ACTIONS 971 [sym_kRepeat];
   ACTIONS 973 [sym_kString]; ACTIONS 975 [sym_kTry]; ACTIONS 2905 [sym_kUntil];
   ACTIONS 979 [sym_kVar]; ACTIONS 981 [sym_kWhile]; ACTIONS 983 [sym_kWith]].

(** State 418. *)
Definition ts_parse_table_418 : parse_row :=
  [STATE 2899 [sym__ppIf]; STATE 996 [sym__procAttributeNoExt];
   STATE 1005 [sym__procAttributesPp]; STATE 15262 [sym_procAttribute];
   STATE 177 [aux_sym__declProc_repeat1]; ACTIONS 2907 [anon_sym_SEMI; anon_sym_COMMA];
   ACTIONS 2909 [anon_sym_LBRACK]; ACTIONS 2912 [anon_sym_LPAREN];
   ACTIONS 2907 [aux_sym__literalString_token1; anon_sym_POUND];
   ACTIONS 2912 [aux_sym__literalInt_token1]; ACTIONS 2907 [aux_sym__literalInt_token2;
   aux_sym__literalInt_token3]; ACTIONS 2912 [aux_sym__literalFloat_token1];
   ACTIONS 2914 [aux_sym_ppUsesBlock_token1]; ACTIONS 2907 [aux_sym_ppUsesBlock_token2;
   aux_sym_ppUsesBlock_token3]; ACTIONS 2912 [sym_kAdd; sym_kSub]; ACTIONS 2907 [sym_kAt;
   sym_kTrue; sym_kFalse]; ACTIONS 3 [sym__space]; ACTIONS 5 [sym_ppDirective];
   ACTIONS 3 [sym_comment]; ACTIONS 2907 [sym_ppFragmentExpr; sym__literalStringMultiline;
   sym_identifier]; ACTIONS 2917 [sym_kDefault; sym_kNodefault]; ACTIONS 2920 [sym_kDispId];
   ACTIONS 2907 [sym_kGeneric; sym_kSpecialize; sym_kOperator]; ACTIONS 2923 [sym_kPublic];
   ACTIONS 2907 [sym_kForward]; ACTIONS 2917 [sym_kStatic; sym_kVirtual; sym_kAbstract;
   sym_kDynamic; sym_kOverride; sym_kOverload; sym_kReintroduce; sym_kStdcall; sym_kCdecl;
   sym_kCppdecl; sym_kPascal; sym_kRegister; sym_kMwpascal]; ACTIONS 2907 [sym_kExternal];
   ACTIONS 2926 [sym_kMessage]; ACTIONS 2929 [sym_kDeprecated]; ACTIONS 2917 [sym_kExperimental;
   sym_kPlatform; sym_kUnimplemented; sym_kCvar]; ACTIONS 2932 [sym_kExport];
   ACTIONS 2917 [sym_kFar; sym_kNear; sym_kSafecall; sym_kAssembler; sym_kNostackframe;
   sym_kInterrupt; sym_kNoreturn; sym_kIocheck; sym_kLocal; sym_kHardfloat; sym_kSoftfloat;
   sym_kMs_abi_default; sym_kMs_abi_cdecl; sym_kSaveregisters; sym_kSysv_abi_default;
   sym_kSysv_abi_cdecl; sym_kVectorcall; sym_kVarargs; sym_kWinapi]; ACTIONS 2935 [sym_kAlias];
   ACTIONS 2907 [sym_kAsm; sym_kBegin; sym_kCase; sym_kClass; sym_kConst; sym_kConstructor;
   sym_kDestructor; sym_kExports; sym_kFor; sym_kFunction; sym_kGoto; sym_kIf; sym_kInherited];
   ACTIONS 1016 [sym_kInline]; ACTIONS 2907 [sym_kLabel; sym_kNil; sym_kNot; sym_kProcedure;
   sym_kProperty; sym_kRaise; sym_kRepeat; sym_kResourcestring; sym_kString; sym_kThreadvar;
   sym_kTry; sym_kType; sym_kUses; sym_kVar; sym_kWhile; sym_kWith]].

(** State 419. *)
Definition ts_parse_table_419 : parse_row :=
  [STATE 6273 [sym_if]; STATE 6303 [sym_ifElse; sym_while; sym_repeat; sym_for; sym_foreach;
   sym_try; sym_case; sym_block; sym_asm; sym_with; sym_raise; sym_statement; sym_goto;
   sym__statement]; STATE 15875 [sym_ifTr; sym_ifElseTr; sym_whileTr; sym_repeatTr; sym_forTr;
   sym_foreachTr; sym_tryTr; sym_caseTr]; STATE 14967 [sym_blockTr]; STATE 15875 [sym_asmTr;
   sym_withTr; sym_raiseTr; sym_statementTr; sym_gotoTr; sym__statementTr];
   STATE 13420 [sym_assignment]; STATE 11684 [sym_varAssignDef]; STATE 13420 [sym_varDef;
   sym_constDef]; STATE 6307 [sym_label]; STATE 15875 [sym__statementsTr];
   STATE 14889 [sym_statementsTr]; STATE 8128 [sym__expr; sym_exprConditional];
   STATE 7533 [sym__ref; sym_lambda; sym_inherited; sym_exprDot; sym_exprDeref; sym_exprAs;
   sym_exprTpl; sym_exprSubscript; sym_exprCall]; STATE 8128 [sym_exprBinary; sym_exprUnary];
   STATE 7533 [sym_exprParens; sym_exprBrackets; sym__literal; sym_literalString];
   STATE 6915 [sym__literalString; sym_literalChar]; STATE 7533 [sym_literalNumber];
   STATE 7570 [sym__literalInt; sym__literalFloat]; STATE 1383 [sym__ppIf];
   STATE 6303 [sym__ppStatementBlock]; STATE 11951 [aux_sym_labeledStatement_repeat1];
   STATE 860 [aux_sym__statementsTr_repeat1]; STATE 6915 [aux_sym_literalString_repeat1];
   ACTIONS 925 [anon_sym_SEMI]; ACTIONS 927 [anon_sym_LBRACK]; ACTIONS 929 [anon_sym_LPAREN];
   ACTIONS 931 [aux_sym__literalString_token1]; ACTIONS 933 [anon_sym_POUND];
   ACTIONS 935 [aux_sym__literalInt_token1]; ACTIONS 937 [aux_sym__literalInt_token2;
   aux_sym__literalInt_token3]; ACTIONS 935 [aux_sym__literalFloat_token1];
   ACTIONS 411 [aux_sym_ppUsesBlock_token1]; ACTIONS 939 [sym_kAdd; sym_kSub];
   ACTIONS 941 [sym_kAt]; ACTIONS 943 [sym_kTrue; sym_kFalse]; ACTIONS 945 [sym_labelNumber];
   ACTIONS 3 [sym__space]; ACTIONS 5 [sym_ppDirective]; ACTIONS 3 [sym_comment];
   ACTIONS 943 [sym_ppFragmentExpr]; ACTIONS 925 [sym_ppFragmentStmt];
   ACTIONS 931 [sym__literalStringMultiline]; ACTIONS 947 [sym_identifier];
   ACTIONS 949 [sym_kSpecialize]; ACTIONS 951 [sym_kAsm]; ACTIONS 953 [sym_kBegin];
   ACTIONS 955 [sym_kCase]; ACTIONS 957 [sym_kConst]; ACTIONS 959 [sym_kFor];
   ACTIONS 961 [sym_kFunction]; ACTIONS 963 [sym_kGoto]; ACTIONS 965 [sym_kIf];
   ACTIONS 967 [sym_kInherited]; ACTIONS 943 [sym_kNil]; ACTIONS 941 [sym_kNot];
   ACTIONS 961 [sym_kProcedure]; ACTIONS 969 [sym_kRaise]; ACTIONS 971 [sym_kRepeat];
   ACTIONS 973 [sym_kString]; ACTIONS 975 [sym_kTry]; ACTIONS 2938 [sym_kUntil];
   ACTIONS 979 [sym_kVar]; ACTIONS 981 [sym_kWhile]; ACTIONS 983 [sym_kWith]].

(** State 420. *)
Definition ts_parse_table_420 : parse_row :=
  [STATE 6273 [sym_if]; STATE 6303 [sym_ifElse; sym_while; sym_repeat; sym_for; sym_foreach;
   sym_try; sym_case; sym_block; sym_asm; sym_with; sym_raise; sym_statement; sym_goto;
   sym__statement]; STATE 15875 [sym_ifTr; sym_ifElseTr; sym_whileTr; sym_repeatTr; sym_forTr;
   sym_foreachTr; sym_tryTr; sym_caseTr]; STATE 14967 [sym_blockTr]; STATE 15875 [sym_asmTr;
   sym_withTr; sym_raiseTr; sym_statementTr; sym_gotoTr; sym__statementTr];
   STATE 13420 [sym_assignment]; STATE 11684 [sym_varAssignDef]; STATE 13420 [sym_varDef;
   sym_constDef]; STATE 6307 [sym_label]; STATE 15875 [sym__statementsTr];
   STATE 14914 [sym_statementsTr]; STATE 8128 [sym__expr; sym_exprConditional];
   STATE 7533 [sym__ref; sym_lambda; sym_inherited; sym_exprDot; sym_exprDeref; sym_exprAs;
   sym_exprTpl; sym_exprSubscript; sym_exprCall]; STATE 8128 [sym_exprBinary; sym_exprUnary];
   STATE 7533 [sym_exprParens; sym_exprBrackets; sym__literal; sym_literalString];
   STATE 6915 [sym__literalString; sym_literalChar]; STATE 7533 [sym_literalNumber];
   STATE 7570 [sym__literalInt; sym__literalFloat]; STATE 1383 [sym__ppIf];
   STATE 6303 [sym__ppStatementBlock]; STATE 11951 [aux_sym_labeledStatement_repeat1];
   STATE 860 [aux_sym__statementsTr_repeat1]; STATE 6915 [aux_sym_literalString_repeat1];
   ACTIONS 925 [anon_sym_SEMI]; ACTIONS 927 [anon_sym_LBRACK]; ACTIONS 929 [anon_sym_LPAREN];
   ACTIONS 931 [aux_sym__literalString_token1]; ACTIONS 933 [anon_sym_POUND];
   ACTIONS 935 [aux_sym__literalInt_token1]; ACTIONS 937 [aux_sym__literalInt_token2;
   aux_sym__literalInt_token3]; ACTIONS 935 [aux_sym__literalFloat_token1];
   ACTIONS 411 [aux_sym_ppUsesBlock_token1]; ACTIONS 939 [sym_kAdd; sym_kSub];
   ACTIONS 941 [sym_kAt]; ACTIONS 943 [sym_kTrue; sym_kFalse]; ACTIONS 945 [sym_labelNumber];
   ACTIONS 3 [sym__space]; ACTIONS 5 [sym_ppDirective]; ACTIONS 3 [sym_comment];
   ACTIONS 943 [sym_ppFragmentExpr]; ACTIONS 925 [sym_ppFragmentStmt];
   ACTIONS 931 [sym__literalStringMultiline]; ACTIONS 947 [sym_identifier];
   ACTIONS 949 [sym_kSpecialize]; ACTIONS 951 [sym_kAsm]; ACTIONS 953 [sym_kBegin];
   ACTIONS 955 [sym_kCase]; ACTIONS 957 [sym_kConst]; ACTIONS 959 [sym_kFor];
   ACTIONS 961 [sym_kFunction]; ACTIONS 963 [sym_kGoto]; ACTIONS 965 [sym_kIf];
   ACTIONS 967 [sym_kInherited]; ACTIONS 943 [sym_kNil]; ACTIONS 941 [sym_kNot];
   ACTIONS 961 [sym_kProcedure]; ACTIONS 969 [sym_kRaise]; ACTIONS 971 [sym_kRepeat];
   ACTIONS 973 [sym_kString]; ACTIONS 975 [sym_kTry]; ACTIONS 2940 [sym_kUntil];
   ACTIONS 979 [sym_kVar]; ACTIONS 981 [sym_kWhile]; ACTIONS 983 [sym_kWith]].

(** State 421. *)
Definition ts_parse_table_421 : parse_row :=
  [STATE 6273 [sym_if]; STATE 6303 [sym_ifElse; sym_while; sym_repeat; sym_for; sym_foreach;
   sym_try; sym_case; sym_block; sym_asm; sym_with; sym_raise; sym_statement; sym_goto;
   sym__statement]; STATE 15875 [sym_ifTr; sym_ifElseTr; sym_whileTr; sym_repeatTr; sym_forTr;
   sym_foreachTr; sym_tryTr; sym_caseTr]; STATE 14967 [sym_blockTr]; STATE 15875 [sym_asmTr;
   sym_withTr; sym_raiseTr; sym_statementTr; sym_gotoTr; sym__statementTr];
   STATE 13420 [sym_assignment]; STATE 11684 [sym_varAssignDef]; STATE 13420 [sym_varDef;
   sym_constDef]; STATE 6307 [sym_label]; STATE 15875 [sym__statementsTr];
   STATE 14939 [sym_statementsTr]; STATE 8128 [sym__expr; sym_exprConditional];
   STATE 7533 [sym__ref; sym_lambda; sym_inherited; sym_exprDot; sym_exprDeref; sym_exprAs;
   sym_exprTpl; sym_exprSubscript; sym_exprCall]; STATE 8128 [sym_exprBinary; sym_exprUnary];
   STATE 7533 [sym_exprParens; sym_exprBrackets; sym__literal; sym_literalString];
   STATE 6915 [sym__literalString; sym_literalChar]; STATE 7533 [sym_literalNumber];
   STATE 7570 [sym__literalInt; sym__literalFloat]; STATE 1383 [sym__ppIf];
   STATE 6303 [sym__ppStatementBlock]; STATE 11951 [aux_sym_labeledStatement_repeat1];
   STATE 860 [aux_sym__statementsTr_repeat1]; STATE 6915 [aux_sym_literalString_repeat1];
   ACTIONS 925 [anon_sym_SEMI]; ACTIONS 927 [anon_sym_LBRACK]; ACTIONS 929 [anon_sym_LPAREN];
   ACTIONS 931 [aux_sym__literalString_token1]; ACTIONS 933 [anon_sym_POUND];
   ACTIONS 935 [aux_sym__literalInt_token1]; ACTIONS 937 [aux_sym__literalInt_token2;
   aux_sym__literalInt_token3]; ACTIONS 935 [aux_sym__literalFloat_token1];
   ACTIONS 411 [aux_sym_ppUsesBlock_token1]; ACTIONS 939 [sym_kAdd; sym_kSub];
   ACTIONS 941 [sym_kAt]; ACTIONS 943 [sym_kTrue; sym_kFalse]; ACTIONS 945 [sym_labelNumber];
   ACTIONS 3 [sym__space]; ACTIONS 5 [sym_ppDirective]; ACTIONS 3 [sym_comment];
   ACTIONS 943 [sym_ppFragmentExpr]; ACTIONS 925 [sym_ppFragmentStmt];
   ACTIONS 931 [sym__literalStringMultiline]; ACTIONS 947 [sym_identifier];
   ACTIONS 949 [sym_kSpecialize]; ACTIONS 951 [sym_kAsm]; ACTIONS 953 [sym_kBegin];
   ACTIONS 955 [sym_kCase]; ACTIONS 957 [sym_kConst]; ACTIONS 959 [sym_kFor];
   ACTIONS 961 [sym_kFunction]; ACTIONS 963 [sym_kGoto]; ACTIONS 965 [sym_kIf];
   ACTIONS 967 [sym_kInherited]; ACTIONS 943 [sym_kNil]; ACTIONS 941 [sym_kNot];
   ACTIONS 961 [sym_kProcedure]; ACTIONS 969 [sym_kRaise]; ACTIONS 971 [sym_kRepeat];
   ACTIONS 973 [sym_kString]; ACTIONS 975 [sym_kTry]; ACTIONS 2942 [sym_kUntil];
   ACTIONS 979 [sym_kVar]; ACTIONS 981 [sym_kWhile]; ACTIONS 983 [sym_kWith]].

(** State 422. *)
Definition ts_parse_table_422 : parse_row :=
  [STATE 6273 [sym_if]; STATE 6303 [sym_ifElse; sym_while; sym_repeat; sym_for; sym_foreach;
   sym_try; sym_case; sym_block; sym_asm; sym_with; sym_raise; sym_statement; sym_goto;
   sym__statement]; STATE 15875 [sym_ifTr; sym_ifElseTr; sym_whileTr; sym_repeatTr; sym_forTr;
   sym_foreachTr; sym_tryTr; sym_caseTr]; STATE 14967 [sym_blockTr]; STATE 15875 [sym_asmTr;
   sym_withTr; sym_raiseTr; sym_statementTr; sym_gotoTr; sym__statementTr];
   STATE 13420 [sym_assignment]; STATE 11684 [sym_varAssignDef]; STATE 13420 [sym_varDef;
   sym_constDef]; STATE 6307 [sym_label]; STATE 15875 [sym__statementsTr];
   STATE 14964 [sym_statementsTr]; STATE 8128 [sym__expr; sym_exprConditional];
   STATE 7533 [sym__ref; sym_lambda; sym_inherited; sym_exprDot; sym_exprDeref; sym_exprAs;
   sym_exprTpl; sym_exprSubscript; sym_exprCall]; STATE 8128 [sym_exprBinary; sym_exprUnary];
   STATE 7533 [sym_exprParens; sym_exprBrackets; sym__literal; sym_literalString];
   STATE 6915 [sym__literalString; sym_literalChar]; STATE 7533 [sym_literalNumber];
   STATE 7570 [sym__literalInt; sym__literalFloat]; STATE 1383 [sym__ppIf];
   STATE 6303 [sym__ppStatementBlock]; STATE 11951 [aux_sym_labeledStatement_repeat1];
   STATE 860 [aux_sym__statementsTr_repeat1]; STATE 6915 [aux_sym_literalString_repeat1];
   ACTIONS 925 [anon_sym_SEMI]; ACTIONS 927 [anon_sym_LBRACK]; ACTIONS 929 [anon_sym_LPAREN];
   ACTIONS 931 [aux_sym__literalString_token1]; ACTIONS 933 [anon_sym_POUND];
   ACTIONS 935 [aux_sym__literalInt_token1]; ACTIONS 937 [aux_sym__literalInt_token2;
   aux_sym__literalInt_token3]; ACTIONS 935 [aux_sym__literalFloat_token1];
   ACTIONS 411 [aux_sym_ppUsesBlock_token1]; ACTIONS 939 [sym_kAdd; sym_kSub];
   ACTIONS 941 [sym_kAt]; ACTIONS 943 [sym_kTrue; sym_kFalse]; ACTIONS 945 [sym_labelNumber];
   ACTIONS 3 [sym__space]; ACTIONS 5 [sym_ppDirective]; ACTIONS 3 [sym_comment];
   ACTIONS 943 [sym_ppFragmentExpr]; ACTIONS 925 [sym_ppFragmentStmt];
   ACTIONS 931 [sym__literalStringMultiline]; ACTIONS 947 [sym_identifier];
   ACTIONS 949 [sym_kSpecialize]; ACTIONS 951 [sym_kAsm]; ACTIONS 953 [sym_kBegin];
   ACTIONS 955 [sym_kCase]; ACTIONS 957 [sym_kConst]; ACTIONS 959 [sym_kFor];
   ACTIONS 961 [sym_kFunction]; ACTIONS 963 [sym_kGoto]; ACTIONS 965 [sym_kIf];
   ACTIONS 967 [sym_kInherited]; ACTIONS 943 [sym_kNil]; ACTIONS 941 [sym_kNot];
   ACTIONS 961 [sym_kProcedure]; ACTIONS 969 [sym_kRaise]; ACTIONS 971 [sym_kRepeat];
   ACTIONS 973 [sym_kString]; ACTIONS 975 [sym_kTry]; ACTIONS 2944 [sym_kUntil];
   ACTIONS 979 [sym_kVar]; ACTIONS 981 [sym_kWhile]; ACTIONS 983 [sym_kWith]].

(** State 423. *)
Definition ts_parse_table_423 : parse_row :=
  [STATE 6273 [sym_if]; STATE 6303 [sym_ifElse; sym_while; sym_repeat; sym_for; sym_foreach;
   sym_try; sym_case; sym_block; sym_asm; sym_with; sym_raise; sym_statement; sym_goto;
   sym__statement]; STATE 15875 [sym_ifTr; sym_ifElseTr; sym_whileTr; sym_repeatTr; sym_forTr;
   sym_foreachTr; sym_tryTr; sym_caseTr]; STATE 14967 [sym_blockTr]; STATE 15875 [sym_asmTr;
   sym_withTr; sym_raiseTr; sym_statementTr; sym_gotoTr; sym__statementTr];
   STATE 13420 [sym_assignment]; STATE 11684 [sym_varAssignDef]; STATE 13420 [sym_varDef;
   sym_constDef]; STATE 6307 [sym_label]; STATE 15875 [sym__statementsTr];
   STATE 14989 [sym_statementsTr]; STATE 8128 [sym__expr; sym_exprConditional];
   STATE 7533 [sym__ref; sym_lambda; sym_inherited; sym_exprDot; sym_exprDeref; sym_exprAs;
   sym_exprTpl; sym_exprSubscript; sym_exprCall]; STATE 8128 [sym_exprBinary; sym_exprUnary];
   STATE 7533 [sym_exprParens; sym_exprBrackets; sym__literal; sym_literalString];
   STATE 6915 [sym__literalString; sym_literalChar]; STATE 7533 [sym_literalNumber];
   STATE 7570 [sym__literalInt; sym__literalFloat]; STATE 1383 [sym__ppIf];
   STATE 6303 [sym__ppStatementBlock]; STATE 11951 [aux_sym_labeledStatement_repeat1];
   STATE 860 [aux_sym__statementsTr_repeat1]; STATE 6915 [aux_sym_literalString_repeat1];
   ACTIONS 925 [anon_sym_SEMI]; ACTIONS 927 [anon_sym_LBRACK]; ACTIONS 929 [anon_sym_LPAREN];
   ACTIONS 931 [aux_sym__literalString_token1]; ACTIONS 933 [anon_sym_POUND];
   ACTIONS 935 [aux_sym__literalInt_token1]; ACTIONS 937 [aux_sym__literalInt_token2;
   aux_sym__literalInt_token3]; ACTIONS 935 [aux_sym__literalFloat_token1];
   ACTIONS 411 [aux_sym_ppUsesBlock_token1]; ACTIONS 939 [sym_kAdd; sym_kSub];
   ACTIONS 941 [sym_kAt]; ACTIONS 943 [sym_kTrue; sym_kFalse]; ACTIONS 945 [sym_labelNumber];
   ACTIONS 3 [sym__space]; ACTIONS 5 [sym_ppDirective]; ACTIONS 3 [sym_comment];
   ACTIONS 943 [sym_ppFragmentExpr]; ACTIONS 925 [sym_ppFragmentStmt];
   ACTIONS 931 [sym__literalStringMultiline]; ACTIONS 947 [sym_identifier];
   ACTIONS 949 [sym_kSpecialize]; ACTIONS 951 [sym_kAsm]; ACTIONS 953 [sym_kBegin];
   ACTIONS 955 [sym_kCase]; ACTIONS 957 [sym_kConst]; ACTIONS 959 [sym_kFor];
   ACTIONS 961 [sym_kFunction]; ACTIONS 963 [sym_kGoto]; ACTIONS 965 [sym_kIf];
   ACTIONS 967 [sym_kInherited]; ACTIONS 943 [sym_kNil]; ACTIONS 941 [sym_kNot];
   ACTIONS 961 [sym_kProcedure]; ACTIONS 969 [sym_kRaise]; ACTIONS 971 [sym_kRepeat];
   ACTIONS 973 [sym_kString]; ACTIONS 975 [sym_kTry]; ACTIONS 2946 [sym_kUntil];
   ACTIONS 979 [sym_kVar]; ACTIONS 981 [sym_kWhile]; ACTIONS 983 [sym_kWith]].

(** State 424. *)
Definition ts_parse_table_424 : parse_row :=
  [STATE 6273 [sym_if]; STATE 6303 [sym_ifElse; sym_while; sym_repeat; sym_for; sym_foreach;
   sym_try; sym_case; sym_block; sym_asm; sym_with; sym_raise; sym_statement; sym_goto;
   sym__statement]; STATE 15875 [sym_ifTr; sym_ifElseTr; sym_whileTr; sym_repeatTr; sym_forTr;
   sym_foreachTr; sym_tryTr; sym_caseTr]; STATE 14967 [sym_blockTr]; STATE 15875 [sym_asmTr;
   sym_withTr; sym_raiseTr; sym_statementTr; sym_gotoTr; sym__statementTr];
   STATE 13420 [sym_assignment]; STATE 11684 [sym_varAssignDef]; STATE 13420 [sym_varDef;
   sym_constDef]; STATE 6307 [sym_label]; STATE 15875 [sym__statementsTr];
   STATE 15014 [sym_statementsTr]; STATE 8128 [sym__expr; sym_exprConditional];
   STATE 7533 [sym__ref; sym_lambda; sym_inherited; sym_exprDot; sym_exprDeref; sym_exprAs;
   sym_exprTpl; sym_exprSubscript; sym_exprCall]; STATE 8128 [sym_exprBinary; sym_exprUnary];
   STATE 7533 [sym_exprParens; sym_exprBrackets; sym__literal; sym_literalString];
   STATE 6915 [sym__literalString; sym_literalChar]; STATE 7533 [sym_literalNumber];
   STATE 7570 [sym__literalInt; sym__literalFloat]; STATE 1383 [sym__ppIf];
   STATE 6303 [sym__ppStatementBlock]; STATE 11951 [aux_sym_labeledStatement_repeat1];
   STATE 860 [aux_sym__statementsTr_repeat1]; STATE 6915 [aux_sym_literalString_repeat1];
   ACTIONS 925 [anon_sym_SEMI]; ACTIONS 927 [anon_sym_LBRACK]; ACTIONS 929 [anon_sym_LPAREN];
   ACTIONS 931 [aux_sym__literalString_token1]; ACTIONS 933 [anon_sym_POUND];
   ACTIONS 935 [aux_sym__literalInt_token1]; ACTIONS 937 [aux_sym__literalInt_token2;
   aux_sym__literalInt_token3]; ACTIONS 935 [aux_sym__literalFloat_token1];
   ACTIONS 411 [aux_sym_ppUsesBlock_token1]; ACTIONS 939 [sym_kAdd; sym_kSub];
   ACTIONS 941 [sym_kAt]; ACTIONS 943 [sym_kTrue; sym_kFalse]; ACTIONS 945 [sym_labelNumber];
   ACTIONS 3 [sym__space]; ACTIONS 5 [sym_ppDirective]; ACTIONS 3 [sym_comment];
   ACTIONS 943 [sym_ppFragmentExpr]; ACTIONS 925 [sym_ppFragmentStmt];
   ACTIONS 931 [sym__literalStringMultiline]; ACTIONS 947 [sym_identifier];
   ACTIONS 949 [sym_kSpecialize]; ACTIONS 951 [sym_kAsm]; ACTIONS 953 [sym_kBegin];
   ACTIONS 955 [sym_kCase]; ACTIONS 957 [sym_kConst]; ACTIONS 959 [sym_kFor];
   ACTIONS 961 [sym_kFunction]; ACTIONS 963 [sym_kGoto]; ACTIONS 965 [sym_kIf];
   ACTIONS 967 [sym_kInherited]; ACTIONS 943 [sym_kNil]; ACTIONS 941 [sym_kNot];
   ACTIONS 961 [sym_kProcedure]; ACTIONS 969 [sym_kRaise]; ACTIONS 971 [sym_kRepeat];
   ACTIONS 973 [sym_kString]; ACTIONS 975 [sym_kTry]; ACTIONS 2948 [sym_kUntil];
   ACTIONS 979 [sym_kVar]; ACTIONS 981 [sym_kWhile]; ACTIONS 983 [sym_kWith]].

(** State 425. *)
Definition ts_parse_table_425 : parse_row :=
  [STATE 6273 [sym_if]; STATE 6303 [sym_ifElse; sym_while; sym_repeat; sym_for; sym_foreach;
   sym_try; sym_case; sym_block; sym_asm; sym_with; sym_raise; sym_statement; sym_goto;
   sym__statement]; STATE 15875 [sym_ifTr; sym_ifElseTr; sym_whileTr; sym_repeatTr; sym_forTr;
   sym_foreachTr; sym_tryTr; sym_caseTr]; STATE 14967 [sym_blockTr]; STATE 15875 [sym_asmTr;
   sym_withTr; sym_raiseTr; sym_statementTr; sym_gotoTr; sym__statementTr];
   STATE 13420 [sym_assignment]; STATE 11684 [sym_varAssignDef]; STATE 13420 [sym_varDef;
   sym_constDef]; STATE 6307 [sym_label]; STATE 15875 [sym__statementsTr];
   STATE 15039 [sym_statementsTr]; STATE 8128 [sym__expr; sym_exprConditional];
   STATE 7533 [sym__ref; sym_lambda; sym_inherited; sym_exprDot; sym_exprDeref; sym_exprAs;
   sym_exprTpl; sym_exprSubscript; sym_exprCall]; STATE 8128 [sym_exprBinary; sym_exprUnary];
   STATE 7533 [sym_exprParens; sym_exprBrackets; sym__literal; sym_literalString];
   STATE 6915 [sym__literalString; sym_literalChar]; STATE 7533 [sym_literalNumber];
   STATE 7570 [sym__literalInt; sym__literalFloat]; STATE 1383 [sym__ppIf];
   STATE 6303 [sym__ppStatementBlock]; STATE 11951 [aux_sym_labeledStatement_repeat1];
   STATE 860 [aux_sym__statementsTr_repeat1]; STATE 6915 [aux_sym_literalString_repeat1];
   ACTIONS 925 [anon_sym_SEMI]; ACTIONS 927 [anon_sym_LBRACK]; ACTIONS 929 [anon_sym_LPAREN];
   ACTIONS 931 [aux_sym__literalString_token1]; ACTIONS 933 [anon_sym_POUND];
   ACTIONS 935 [aux_sym__literalInt_token1]; ACTIONS 937 [aux_sym__literalInt_token2;
   aux_sym__literalInt_token3]; ACTIONS 935 [aux_sym__literalFloat_token1];
   ACTIONS 411 [aux_sym_ppUsesBlock_token1]; ACTIONS 939 [sym_kAdd; sym_kSub];
   ACTIONS 941 [sym_kAt]; ACTIONS 943 [sym_kTrue; sym_kFalse]; ACTIONS 945 [sym_labelNumber];
   ACTIONS 3 [sym__space]; ACTIONS 5 [sym_ppDirective]; ACTIONS 3 [sym_comment];
   ACTIONS 943 [sym_ppFragmentExpr]; ACTIONS 925 [sym_ppFragmentStmt];
   ACTIONS 931 [sym__literalStringMultiline]; ACTIONS 947 [sym_identifier];
   ACTIONS 949 [sym_kSpecialize]; ACTIONS 951 [sym_kAsm]; ACTIONS 953 [sym_kBegin];
   ACTIONS 955 [sym_kCase]; ACTIONS 957 [sym_kConst]; ACTIONS 959 [sym_kFor];
   ACTIONS 961 [sym_kFunction]; ACTIONS 963 [sym_kGoto]; ACTIONS 965 [sym_kIf];
   ACTIONS 967 [sym_kInherited]; ACTIONS 943 [sym_kNil]; ACTIONS 941 [sym_kNot];
   ACTIONS 961 [sym_kProcedure]; ACTIONS 969 [sym_kRaise]; ACTIONS 971 [sym_kRepeat];
   ACTIONS 973 [sym_kString]; ACTIONS 975 [sym_kTry]; ACTIONS 2950 [sym_kUntil];
   ACTIONS 979 [sym_kVar]; ACTIONS 981 [sym_kWhile]; ACTIONS 983 [sym_kWith]].

(** State 426. *)
Definition ts_parse_table_426 : parse_row :=
  [STATE 6273 [sym_if]; STATE 6303 [sym_ifElse; sym_while; sym_repeat; sym_for; sym_foreach;
   sym_try; sym_case; sym_block; sym_asm; sym_with; sym_raise; sym_statement; sym_goto;
   sym__statement]; STATE 15875 [sym_ifTr; sym_ifElseTr; sym_whileTr; sym_repeatTr; sym_forTr;
   sym_foreachTr; sym_tryTr; sym_caseTr]; STATE 14967 [sym_blockTr]; STATE 15875 [sym_asmTr;
   sym_withTr; sym_raiseTr; sym_statementTr; sym_gotoTr; sym__statementTr];
   STATE 13420 [sym_assignment]; STATE 11684 [sym_varAssignDef]; STATE 13420 [sym_varDef;
   sym_constDef]; STATE 6307 [sym_label]; STATE 15875 [sym__statementsTr];
   STATE 15060 [sym_statementsTr]; STATE 8128 [sym__expr; sym_exprConditional];
   STATE 7533 [sym__ref; sym_lambda; sym_inherited; sym_exprDot; sym_exprDeref; sym_exprAs;
   sym_exprTpl; sym_exprSubscript; sym_exprCall]; STATE 8128 [sym_exprBinary; sym_exprUnary];
   STATE 7533 [sym_exprParens; sym_exprBrackets; sym__literal; sym_literalString];
   STATE 6915 [sym__literalString; sym_literalChar]; STATE 7533 [sym_literalNumber];
   STATE 7570 [sym__literalInt; sym__literalFloat]; STATE 1383 [sym__ppIf];
   STATE 6303 [sym__ppStatementBlock]; STATE 11951 [aux_sym_labeledStatement_repeat1];
   STATE 860 [aux_sym__statementsTr_repeat1]; STATE 6915 [aux_sym_literalString_repeat1];
   ACTIONS 925 [anon_sym_SEMI]; ACTIONS 927 [anon_sym_LBRACK]; ACTIONS 929 [anon_sym_LPAREN];
   ACTIONS 931 [aux_sym__literalString_token1]; ACTIONS 933 [anon_sym_POUND];
   ACTIONS 935 [aux_sym__literalInt_token1]; ACTIONS 937 [aux_sym__literalInt_token2;
   aux_sym__literalInt_token3]; ACTIONS 935 [aux_sym__literalFloat_token1];
   ACTIONS 411 [aux_sym_ppUsesBlock_token1]; ACTIONS 939 [sym_kAdd; sym_kSub];
   ACTIONS 941 [sym_kAt]; ACTIONS 943 [sym_kTrue; sym_kFalse]; ACTIONS 945 [sym_labelNumber];
   ACTIONS 3 [sym__space]; ACTIONS 5 [sym_ppDirective]; ACTIONS 3 [sym_comment];
   ACTIONS 943 [sym_ppFragmentExpr]; ACTIONS 925 [sym_ppFragmentStmt];
   ACTIONS 931 [sym__literalStringMultiline]; ACTIONS 947 [sym_identifier];
   ACTIONS 949 [sym_kSpecialize]; ACTIONS 951 [sym_kAsm]; ACTIONS 953 [sym_kBegin];
   ACTIONS 955 [sym_kCase]; ACTIONS 957 [sym_kConst]; ACTIONS 959 [sym_kFor];
   ACTIONS 961 [sym_kFunction]; ACTIONS 963 [sym_kGoto]; ACTIONS 965 [sym_kIf];
   ACTIONS 967 [sym_kInherited]; ACTIONS 943 [sym_kNil]; ACTIONS 941 [sym_kNot];
   ACTIONS 961 [sym_kProcedure]; ACTIONS 969 [sym_kRaise]; ACTIONS 971 [sym_kRepeat];
   ACTIONS 973 [sym_kString]; ACTIONS 975 [sym_kTry]; ACTIONS 2952 [sym_kUntil];
   ACTIONS 979 [sym_kVar]; ACTIONS 981 [sym_kWhile]; ACTIONS 983 [sym_kWith]].

(** State 427. *)
Definition ts_parse_table_427 : parse_row :=
  [STATE 6273 [sym_if]; STATE 6303 [sym_ifElse; sym_while; sym_repeat; sym_for; sym_foreach;
   sym_try; sym_case; sym_block; sym_asm; sym_with; sym_raise; sym_statement; sym_goto;
   sym__statement]; STATE 15875 [sym_ifTr; sym_ifElseTr; sym_whileTr; sym_repeatTr; sym_forTr;
   sym_foreachTr; sym_tryTr; sym_caseTr]; STATE 14967 [sym_blockTr]; STATE 15875 [sym_asmTr;
   sym_withTr; sym_raiseTr; sym_statementTr; sym_gotoTr; sym__statementTr];
   STATE 13420 [sym_assignment]; STATE 11684 [sym_varAssignDef]; STATE 13420 [sym_varDef;
   sym_constDef]; STATE 6307 [sym_label]; STATE 15875 [sym__statementsTr];
   STATE 15081 [sym_statementsTr]; STATE 8128 [sym__expr; sym_exprConditional];
   STATE 7533 [sym__ref; sym_lambda; sym_inherited; sym_exprDot; sym_exprDeref; sym_exprAs;
   sym_exprTpl; sym_exprSubscript; sym_exprCall]; STATE 8128 [sym_exprBinary; sym_exprUnary];
   STATE 7533 [sym_exprParens; sym_exprBrackets; sym__literal; sym_literalString];
   STATE 6915 [sym__literalString; sym_literalChar]; STATE 7533 [sym_literalNumber];
   STATE 7570 [sym__literalInt; sym__literalFloat]; STATE 1383 [sym__ppIf];
   STATE 6303 [sym__ppStatementBlock]; STATE 11951 [aux_sym_labeledStatement_repeat1];
   STATE 860 [aux_sym__statementsTr_repeat1]; STATE 6915 [aux_sym_literalString_repeat1];
   ACTIONS 925 [anon_sym_SEMI]; ACTIONS 927 [anon_sym_LBRACK]; ACTIONS 929 [anon_sym_LPAREN];
   ACTIONS 931 [aux_sym__literalString_token1]; ACTIONS 933 [anon_sym_POUND];
   ACTIONS 935 [aux_sym__literalInt_token1]; ACTIONS 937 [aux_sym__literalInt_token2;
   aux_sym__literalInt_token3]; ACTIONS 935 [aux_sym__literalFloat_token1];
   ACTIONS 411 [aux_sym_ppUsesBlock_token1]; ACTIONS 939 [sym_kAdd; sym_kSub];
   ACTIONS 941 [sym_kAt]; ACTIONS 943 [sym_kTrue; sym_kFalse]; ACTIONS 945 [sym_labelNumber];
   ACTIONS 3 [sym__space]; ACTIONS 5 [sym_ppDirective]; ACTIONS 3 [sym_comment];
   ACTIONS 943 [sym_ppFragmentExpr]; ACTIONS 925 [sym_ppFragmentStmt];
   ACTIONS 931 [sym__literalStringMultiline]; ACTIONS 947 [sym_identifier];
   ACTIONS 949 [sym_kSpecialize]; ACTIONS 951 [sym_kAsm]; ACTIONS 953 [sym_kBegin];
   ACTIONS 955 [sym_kCase]; ACTIONS 957 [sym_kConst]; ACTIONS 959 [sym_kFor];
   ACTIONS 961 [sym_kFunction]; ACTIONS 963 [sym_kGoto]; ACTIONS 965 [sym_kIf];
   ACTIONS 967 [sym_kInherited]; ACTIONS 943 [sym_kNil]; ACTIONS 941 [sym_kNot];
   ACTIONS 961 [sym_kProcedure]; ACTIONS 969 [sym_kRaise]; ACTIONS 971 [sym_kRepeat];
   ACTIONS 973 [sym_kString]; ACTIONS 975 [sym_kTry]; ACTIONS 2954 [sym_kUntil];
   ACTIONS 979 [sym_kVar]; ACTIONS 981 [sym_kWhile]; ACTIONS 983 [sym_kWith]].

(** State 428. *)
Definition ts_parse_table_428 : parse_row :=
  [STATE 6273 [sym_if]; STATE 6303 [sym_ifElse; sym_while; sym_repeat; sym_for; sym_foreach;
   sym_try; sym_case; sym_block; sym_asm; sym_with; sym_raise; sym_statement; sym_goto;
   sym__statement]; STATE 15875 [sym_ifTr; sym_ifElseTr; sym_whileTr; sym_repeatTr; sym_forTr;
   sym_foreachTr; sym_tryTr; sym_caseTr]; STATE 14967 [sym_blockTr]; STATE 15875 [sym_asmTr;
   sym_withTr; sym_raiseTr; sym_statementTr; sym_gotoTr; sym__statementTr];
   STATE 13420 [sym_assignment]; STATE 11684 [sym_varAssignDef]; STATE 13420 [sym_varDef;
   sym_constDef]; STATE 6307 [sym_label]; STATE 15875 [sym__statementsTr];
   STATE 15102 [sym_statementsTr]; STATE 8128 [sym__expr; sym_exprConditional];
   STATE 7533 [sym__ref; sym_lambda; sym_inherited; sym_exprDot; sym_exprDeref; sym_exprAs;
   sym_exprTpl; sym_exprSubscript; sym_exprCall]; STATE 8128 [sym_exprBinary; sym_exprUnary];
   STATE 7533 [sym_exprParens; sym_exprBrackets; sym__literal; sym_literalString];
   STATE 6915 [sym__literalString; sym_literalChar]; STATE 7533 [sym_literalNumber];
   STATE 7570 [sym__literalInt; sym__literalFloat]; STATE 1383 [sym__ppIf];
   STATE 6303 [sym__ppStatementBlock]; STATE 11951 [aux_sym_labeledStatement_repeat1];
   STATE 860 [aux_sym__statementsTr_repeat1]; STATE 6915 [aux_sym_literalString_repeat1];
   ACTIONS 925 [anon_sym_SEMI]; ACTIONS 927 [anon_sym_LBRACK]; ACTIONS 929 [anon_sym_LPAREN];
   ACTIONS 931 [aux_sym__literalString_token1]; ACTIONS 933 [anon_sym_POUND];
   ACTIONS 935 [aux_sym__literalInt_token1]; ACTIONS 937 [aux_sym__literalInt_token2;
   aux_sym__literalInt_token3]; ACTIONS 935 [aux_sym__literalFloat_token1];
   ACTIONS 411 [aux_sym_ppUsesBlock_token1]; ACTIONS 939 [sym_kAdd; sym_kSub];
   ACTIONS 941 [sym_kAt]; ACTIONS 943 [sym_kTrue; sym_kFalse]; ACTIONS 945 [sym_labelNumber];
   ACTIONS 3 [sym__space]; ACTIONS 5 [sym_ppDirective]; ACTIONS 3 [sym_comment];
   ACTIONS 943 [sym_ppFragmentExpr]; ACTIONS 925 [sym_ppFragmentStmt];
   ACTIONS 931 [sym__literalStringMultiline]; ACTIONS 947 [sym_identifier];
   ACTIONS 949 [sym_kSpecialize]; ACTIONS 951 [sym_kAsm]; ACTIONS 953 [sym_kBegin];
   ACTIONS 955 [sym_kCase]; ACTIONS 957 [sym_kConst]; ACTIONS 959 [sym_kFor];
   ACTIONS 961 [sym_kFunction]; ACTIONS 963 [sym_kGoto]; ACTIONS 965 [sym_kIf];
   ACTIONS 967 [sym_kInherited]; ACTIONS 943 [sym_kNil]; ACTIONS 941 [sym_kNot];
   ACTIONS 961 [sym_kProcedure]; ACTIONS 969 [sym_kRaise]; ACTIONS 971 [sym_kRepeat];
   ACTIONS 973 [sym_kString]; ACTIONS 975 [sym_kTry]; ACTIONS 2956 [sym_kUntil];
   ACTIONS 979 [sym_kVar]; ACTIONS 981 [sym_kWhile]; ACTIONS 983 [sym_kWith]].

(** State 429. *)
Definition ts_parse_table_429 : parse_row :=
  [STATE 6273 [sym_if]; STATE 6303 [sym_ifElse; sym_while; sym_repeat; sym_for; sym_foreach;
   sym_try; sym_case; sym_block; sym_asm; sym_with; sym_raise; sym_statement; sym_goto;
   sym__statement]; STATE 15875 [sym_ifTr; sym_ifElseTr; sym_whileTr; sym_repeatTr; sym_forTr;
   sym_foreachTr; sym_tryTr; sym_caseTr]; STATE 14967 [sym_blockTr]; STATE 15875 [sym_asmTr;
   sym_withTr; sym_raiseTr; sym_statementTr; sym_gotoTr; sym__statementTr];
   STATE 13420 [sym_assignment]; STATE 11684 [sym_varAssignDef]; STATE 13420 [sym_varDef;
   sym_constDef]; STATE 6307 [sym_label]; STATE 15875 [sym__statementsTr];
   STATE 15123 [sym_statementsTr]; STATE 8128 [sym__expr; sym_exprConditional];
   STATE 7533 [sym__ref; sym_lambda; sym_inherited; sym_exprDot; sym_exprDeref; sym_exprAs;
   sym_exprTpl; sym_exprSubscript; sym_exprCall]; STATE 8128 [sym_exprBinary; sym_exprUnary];
   STATE 7533 [sym_exprParens; sym_exprBrackets; sym__literal; sym_literalString];
   STATE 6915 [sym__literalString; sym_literalChar]; STATE 7533 [sym_literalNumber];
   STATE 7570 [sym__literalInt; sym__literalFloat]; STATE 1383 [sym__ppIf];
   STATE 6303 [sym__ppStatementBlock]; STATE 11951 [aux_sym_labeledStatement_repeat1];
   STATE 860 [aux_sym__statementsTr_repeat1]; STATE 6915 [aux_sym_literalString_repeat1];
   ACTIONS 925 [anon_sym_SEMI]; ACTIONS 927 [anon_sym_LBRACK]; ACTIONS 929 [anon_sym_LPAREN];
   ACTIONS 931 [aux_sym__literalString_token1]; ACTIONS 933 [anon_sym_POUND];
   ACTIONS 935 [aux_sym__literalInt_token1]; ACTIONS 937 [aux_sym__literalInt_token2;
   aux_sym__literalInt_token3]; ACTIONS 935 [aux_sym__literalFloat_token1];
   ACTIONS 411 [aux_sym_ppUsesBlock_token1]; ACTIONS 939 [sym_kAdd; sym_kSub];
   ACTIONS 941 [sym_kAt]; ACTIONS 943 [sym_kTrue; sym_kFalse]; ACTIONS 945 [sym_labelNumber];
   ACTIONS 3 [sym__space]; ACTIONS 5 [sym_ppDirective]; ACTIONS 3 [sym_comment];
   ACTIONS 943 [sym_ppFragmentExpr]; ACTIONS 925 [sym_ppFragmentStmt];
   ACTIONS 931 [sym__literalStringMultiline]; ACTIONS 947 [sym_identifier];
   ACTIONS 949 [sym_kSpecialize]; ACTIONS 951 [sym_kAsm]; ACTIONS 953 [sym_kBegin];
   ACTIONS 955 [sym_kCase]; ACTIONS 957 [sym_kConst]; ACTIONS 959 [sym_kFor];
   ACTIONS 961 [sym_kFunction]; ACTIONS 963 [sym_kGoto]; ACTIONS 965 [sym_kIf];
   ACTIONS 967 [sym_kInherited]; ACTIONS 943 [sym_kNil]; ACTIONS 941 [sym_kNot];
   ACTIONS 961 [sym_kProcedure]; ACTIONS 969 [sym_kRaise]; ACTIONS 971 [sym_kRepeat];
   ACTIONS 973 [sym_kString]; ACTIONS 975 [sym_kTry]; ACTIONS 2958 [sym_kUntil];
   ACTIONS 979 [sym_kVar]; ACTIONS 981 [sym_kWhile]; ACTIONS 983 [sym_kWith]].

(** State 430. *)
Definition ts_parse_table_430 : parse_row :=
  [STATE 6273 [sym_if]; STATE 6303 [sym_ifElse; sym_while; sym_repeat; sym_for; sym_foreach;
   sym_try; sym_case; sym_block; sym_asm; sym_with; sym_raise; sym_statement; sym_goto;
   sym__statement]; STATE 15875 [sym_ifTr; sym_ifElseTr; sym_whileTr; sym_repeatTr; sym_forTr;
   sym_foreachTr; sym_tryTr; sym_caseTr]; STATE 14967 [sym_blockTr]; STATE 15875 [sym_asmTr;
   sym_withTr; sym_raiseTr; sym_statementTr; sym_gotoTr; sym__statementTr];
   STATE 13420 [sym_assignment]; STATE 11684 [sym_varAssignDef]; STATE 13420 [sym_varDef;
   sym_constDef]; STATE 6307 [sym_label]; STATE 15875 [sym__statementsTr];
   STATE 15144 [sym_statementsTr]; STATE 8128 [sym__expr; sym_exprConditional];
   STATE 7533 [sym__ref; sym_lambda; sym_inherited; sym_exprDot; sym_exprDeref; sym_exprAs;
   sym_exprTpl; sym_exprSubscript; sym_exprCall]; STATE 8128 [sym_exprBinary; sym_exprUnary];
   STATE 7533 [sym_exprParens; sym_exprBrackets; sym__literal; sym_literalString];
   STATE 6915 [sym__literalString; sym_literalChar]; STATE 7533 [sym_literalNumber];
   STATE 7570 [sym__literalInt; sym__literalFloat]; STATE 1383 [sym__ppIf];
   STATE 6303 [sym__ppStatementBlock]; STATE 11951 [aux_sym_labeledStatement_repeat1];
   STATE 860 [aux_sym__statementsTr_repeat1]; STATE 6915 [aux_sym_literalString_repeat1];
   ACTIONS 925 [anon_sym_SEMI]; ACTIONS 927 [anon_sym_LBRACK]; ACTIONS 929 [anon_sym_LPAREN];
   ACTIONS 931 [aux_sym__literalString_token1]; ACTIONS 933 [anon_sym_POUND];
   ACTIONS 935 [aux_sym__literalInt_token1]; ACTIONS 937 [aux_sym__literalInt_token2;
   aux_sym__literalInt_token3]; ACTIONS 935 [aux_sym__literalFloat_token1];
   ACTIONS 411 [aux_sym_ppUsesBlock_token1]; ACTIONS 939 [sym_kAdd; sym_kSub];
   ACTIONS 941 [sym_kAt]; ACTIONS 943 [sym_kTrue; sym_kFalse]; ACTIONS 945 [sym_labelNumber];
   ACTIONS 3 [sym__space]; ACTIONS 5 [sym_ppDirective]; ACTIONS 3 [sym_comment];
   ACTIONS 943 [sym_ppFragmentExpr]; ACTIONS 925 [sym_ppFragmentStmt];
   ACTIONS 931 [sym__literalStringMultiline]; ACTIONS 947 [sym_identifier];
   ACTIONS 949 [sym_kSpecialize]; ACTIONS 951 [sym_kAsm]; ACTIONS 953 [sym_kBegin];
   ACTIONS 955 [sym_kCase]; ACTIONS 957 [sym_kConst]; ACTIONS 959 [sym_kFor];
   ACTIONS 961 [sym_kFunction]; ACTIONS 963 [sym_kGoto]; ACTIONS 965 [sym_kIf];
   ACTIONS 967 [sym_kInherited]; ACTIONS 943 [sym_kNil]; ACTIONS 941 [sym_kNot];
   ACTIONS 961 [sym_kProcedure]; ACTIONS 969 [sym_kRaise]; ACTIONS 971 [sym_kRepeat];
   ACTIONS 973 [sym_kString]; ACTIONS 975 [sym_kTry]; ACTIONS 2960 [sym_kUntil];
   ACTIONS 979 [sym_kVar]; ACTIONS 981 [sym_kWhile]; ACTIONS 983 [sym_kWith]].

(** State 431. *)
Definition ts_parse_table_431 : parse_row :=
  [STATE 6273 [sym_if]; STATE 6303 [sym_ifElse; sym_while; sym_repeat; sym_for; sym_foreach;
   sym_try; sym_case; sym_block; sym_asm; sym_with; sym_raise; sym_statement; sym_goto;
   sym__statement]; STATE 15875 [sym_ifTr; sym_ifElseTr; sym_whileTr; sym_repeatTr; sym_forTr;
   sym_foreachTr; sym_tryTr; sym_caseTr]; STATE 14967 [sym_blockTr]; STATE 15875 [sym_asmTr;
   sym_withTr; sym_raiseTr; sym_statementTr; sym_gotoTr; sym__statementTr];
   STATE 13420 [sym_assignment]; STATE 11684 [sym_varAssignDef]; STATE 13420 [sym_varDef;
   sym_constDef]; STATE 6307 [sym_label]; STATE 15875 [sym__statementsTr];
   STATE 15165 [sym_statementsTr]; STATE 8128 [sym__expr; sym_exprConditional];
   STATE 7533 [sym__ref; sym_lambda; sym_inherited; sym_exprDot; sym_exprDeref; sym_exprAs;
   sym_exprTpl; sym_exprSubscript; sym_exprCall]; STATE 8128 [sym_exprBinary; sym_exprUnary];
   STATE 7533 [sym_exprParens; sym_exprBrackets; sym__literal; sym_literalString];
   STATE 6915 [sym__literalString; sym_literalChar]; STATE 7533 [sym_literalNumber];
   STATE 7570 [sym__literalInt; sym__literalFloat]; STATE 1383 [sym__ppIf];
   STATE 6303 [sym__ppStatementBlock]; STATE 11951 [aux_sym_labeledStatement_repeat1];
   STATE 860 [aux_sym__statementsTr_repeat1]; STATE 6915 [aux_sym_literalString_repeat1];
   ACTIONS 925 [anon_sym_SEMI]; ACTIONS 927 [anon_sym_LBRACK]; ACTIONS 929 [anon_sym_LPAREN];
   ACTIONS 931 [aux_sym__literalString_token1]; ACTIONS 933 [anon_sym_POUND];
   ACTIONS 935 [aux_sym__literalInt_token1]; ACTIONS 937 [aux_sym__literalInt_token2;
   aux_sym__literalInt_token3]; ACTIONS 935 [aux_sym__literalFloat_token1];
   ACTIONS 411 [aux_sym_ppUsesBlock_token1]; ACTIONS 939 [sym_kAdd; sym_kSub];
   ACTIONS 941 [sym_kAt]; ACTIONS 943 [sym_kTrue; sym_kFalse]; ACTIONS 945 [sym_labelNumber];
   ACTIONS 3 [sym__space]; ACTIONS 5 [sym_ppDirective]; ACTIONS 3 [sym_comment];
   ACTIONS 943 [sym_ppFragmentExpr]; ACTIONS 925 [sym_ppFragmentStmt];
   ACTIONS 931 [sym__literalStringMultiline]; ACTIONS 947 [sym_identifier];
   ACTIONS 949 [sym_kSpecialize]; ACTIONS 951 [sym_kAsm]; ACTIONS 953 [sym_kBegin];
   ACTIONS 955 [sym_kCase]; ACTIONS 957 [sym_kConst]; ACTIONS 959 [sym_kFor];
   ACTIONS 961 [sym_kFunction]; ACTIONS 963 [sym_kGoto]; ACTIONS 965 [sym_kIf];
   ACTIONS 967 [sym_kInherited]; ACTIONS 943 [sym_kNil]; ACTIONS 941 [sym_kNot];
   ACTIONS 961 [sym_kProcedure]; ACTIONS 969 [sym_kRaise]; ACTIONS 971 [sym_kRepeat];
   ACTIONS 973 [sym_kString]; ACTIONS 975 [sym_kTry]; ACTIONS 2962 [sym_kUntil];
   ACTIONS 979 [sym_kVar]; ACTIONS 981 [sym_kWhile]; ACTIONS 983 [sym_kWith]].

(** State 432. *)
Definition ts_parse_table_432 : parse_row :=
  [STATE 6273 [sym_if]; STATE 6303 [sym_ifElse; sym_while; sym_repeat; sym_for; sym_foreach;
   sym_try; sym_case; sym_block; sym_asm; sym_with; sym_raise; sym_statement; sym_goto;
   sym__statement]; STATE 15875 [sym_ifTr; sym_ifElseTr; sym_whileTr; sym_repeatTr; sym_forTr;
   sym_foreachTr; sym_tryTr; sym_caseTr]; STATE 14967 [sym_blockTr]; STATE 15875 [sym_asmTr;
   sym_withTr; sym_raiseTr; sym_statementTr; sym_gotoTr; sym__statementTr];
   STATE 13420 [sym_assignment]; STATE 11684 [sym_varAssignDef]; STATE 13420 [sym_varDef;
   sym_constDef]; STATE 6307 [sym_label]; STATE 15875 [sym__statementsTr];
   STATE 15186 [sym_statementsTr]; STATE 8128 [sym__expr; sym_exprConditional];
   STATE 7533 [sym__ref; sym_lambda; sym_inherited; sym_exprDot; sym_exprDeref; sym_exprAs;
   sym_exprTpl; sym_exprSubscript; sym_exprCall]; STATE 8128 [sym_exprBinary; sym_exprUnary];
   STATE 7533 [sym_exprParens; sym_exprBrackets; sym__literal; sym_literalString];
   STATE 6915 [sym__literalString; sym_literalChar]; STATE 7533 [sym_literalNumber];
   STATE 7570 [sym__literalInt; sym__literalFloat]; STATE 1383 [sym__ppIf];
   STATE 6303 [sym__ppStatementBlock]; STATE 11951 [aux_sym_labeledStatement_repeat1];
   STATE 860 [aux_sym__statementsTr_repeat1]; STATE 6915 [aux_sym_literalString_repeat1];
   ACTIONS 925 [anon_sym_SEMI]; ACTIONS 927 [anon_sym_LBRACK]; ACTIONS 929 [anon_sym_LPAREN];
   ACTIONS 931 [aux_sym__literalString_token1]; ACTIONS 933 [anon_sym_POUND];
   ACTIONS 935 [aux_sym__literalInt_token1]; ACTIONS 937 [aux_sym__literalInt_token2;
   aux_sym__literalInt_token3]; ACTIONS 935 [aux_sym__literalFloat_token1];
   ACTIONS 411 [aux_sym_ppUsesBlock_token1]; ACTIONS 939 [sym_kAdd; sym_kSub];
   ACTIONS 941 [sym_kAt]; ACTIONS 943 [sym_kTrue; sym_kFalse]; ACTIONS 945 [sym_labelNumber];
   ACTIONS 3 [sym__space]; ACTIONS 5 [sym_ppDirective]; ACTIONS 3 [sym_comment];
   ACTIONS 943 [sym_ppFragmentExpr]; ACTIONS 925 [sym_ppFragmentStmt];
   ACTIONS 931 [sym__literalStringMultiline]; ACTIONS 947 [sym_identifier];
   ACTIONS 949 [sym_kSpecialize]; ACTIONS 951 [sym_kAsm]; ACTIONS 953 [sym_kBegin];
   ACTIONS 955 [sym_kCase]; ACTIONS 957 [sym_kConst]; ACTIONS 959 [sym_kFor];
   ACTIONS 961 [sym_kFunction]; ACTIONS 963 [sym_kGoto]; ACTIONS 965 [sym_kIf];
   ACTIONS 967 [sym_kInherited]; ACTIONS 943 [sym_kNil]; ACTIONS 941 [sym_kNot];
   ACTIONS 961 [sym_kProcedure]; ACTIONS 969 [sym_kRaise]; ACTIONS 971 [sym_kRepeat];
   ACTIONS 973 [sym_kString]; ACTIONS 975 [sym_kTry]; ACTIONS 2964 [sym_kUntil];
   ACTIONS 979 [sym_kVar]; ACTIONS 981 [sym_kWhile]; ACTIONS 983 [sym_kWith]].

(** State 433. *)
Definition ts_parse_table_433 : parse_row :=
  [STATE 6273 [sym_if]; STATE 6303 [sym_ifElse; sym_while; sym_repeat; sym_for; sym_foreach;
   sym_try; sym_case; sym_block; sym_asm; sym_with; sym_raise; sym_statement; sym_goto;
   sym__statement]; STATE 15875 [sym_ifTr; sym_ifElseTr; sym_whileTr; sym_repeatTr; sym_forTr;
   sym_foreachTr; sym_tryTr; sym_caseTr]; STATE 14967 [sym_blockTr]; STATE 15875 [sym_asmTr;
   sym_withTr; sym_raiseTr; sym_statementTr; sym_gotoTr; sym__statementTr];
   STATE 13420 [sym_assignment]; STATE 11684 [sym_varAssignDef]; STATE 13420 [sym_varDef;
   sym_constDef]; STATE 6307 [sym_label]; STATE 15875 [sym__statementsTr];
   STATE 15207 [sym_statementsTr]; STATE 8128 [sym__expr; sym_exprConditional];
   STATE 7533 [sym__ref; sym_lambda; sym_inherited; sym_exprDot; sym_exprDeref; sym_exprAs;
   sym_exprTpl; sym_exprSubscript; sym_exprCall]; STATE 8128 [sym_exprBinary; sym_exprUnary];
   STATE 7533 [sym_exprParens; sym_exprBrackets; sym__literal; sym_literalString];
   STATE 6915 [sym__literalString; sym_literalChar]; STATE 7533 [sym_literalNumber];
   STATE 7570 [sym__literalInt; sym__literalFloat]; STATE 1383 [sym__ppIf];
   STATE 6303 [sym__ppStatementBlock]; STATE 11951 [aux_sym_labeledStatement_repeat1];
   STATE 860 [aux_sym__statementsTr_repeat1]; STATE 6915 [aux_sym_literalString_repeat1];
   ACTIONS 925 [anon_sym_SEMI]; ACTIONS 927 [anon_sym_LBRACK]; ACTIONS 929 [anon_sym_LPAREN];
   ACTIONS 931 [aux_sym__literalString_token1]; ACTIONS 933 [anon_sym_POUND];
   ACTIONS 935 [aux_sym__literalInt_token1]; ACTIONS 937 [aux_sym__literalInt_token2;
   aux_sym__literalInt_token3]; ACTIONS 935 [aux_sym__literalFloat_token1];
   ACTIONS 411 [aux_sym_ppUsesBlock_token1]; ACTIONS 939 [sym_kAdd; sym_kSub];
   ACTIONS 941 [sym_kAt]; ACTIONS 943 [sym_kTrue; sym_kFalse]; ACTIONS 945 [sym_labelNumber];
   ACTIONS 3 [sym__space]; ACTIONS 5 [sym_ppDirective]; ACTIONS 3 [sym_comment];
   ACTIONS 943 [sym_ppFragmentExpr]; ACTIONS 925 [sym_ppFragmentStmt];
   ACTIONS 931 [sym__literalStringMultiline]; ACTIONS 947 [sym_identifier];
   ACTIONS 949 [sym_kSpecialize]; ACTIONS 951 [sym_kAsm]; ACTIONS 953 [sym_kBegin];
   ACTIONS 955 [sym_kCase]; ACTIONS 957 [sym_kConst]; ACTIONS 959 [sym_kFor];
   ACTIONS 961 [sym_kFunction]; ACTIONS 963 [sym_kGoto]; ACTIONS 965 [sym_kIf];
   ACTIONS 967 [sym_kInherited]; ACTIONS 943 [sym_kNil]; ACTIONS 941 [sym_kNot];
   ACTIONS 961 [sym_kProcedure]; ACTIONS 969 [sym_kRaise]; ACTIONS 971 [sym_kRepeat];
   ACTIONS 973 [sym_kString]; ACTIONS 975 [sym_kTry]; ACTIONS 2966 [sym_kUntil];
   ACTIONS 979 [sym_kVar]; ACTIONS 981 [sym_kWhile]; ACTIONS 983 [sym_kWith]].

(** State 434. *)
Definition ts_parse_table_434 : parse_row :=
  [STATE 2899 [sym__ppIf]; STATE 996 [sym__procAttributeNoExt];
   STATE 1005 [sym__procAttributesPp]; STATE 15262 [sym_procAttribute];
   STATE 183 [aux_sym__declProc_repeat1]; ACTIONS 2968 [anon_sym_SEMI; anon_sym_COMMA];
   ACTIONS 2970 [anon_sym_LBRACK]; ACTIONS 2973 [anon_sym_LPAREN];
   ACTIONS 2968 [aux_sym__literalString_token1; anon_sym_POUND];
   ACTIONS 2973 [aux_sym__literalInt_token1]; ACTIONS 2968 [aux_sym__literalInt_token2;
   aux_sym__literalInt_token3]; ACTIONS 2973 [aux_sym__literalFloat_token1];
   ACTIONS 2975 [aux_sym_ppUsesBlock_token1]; ACTIONS 2968 [aux_sym_ppUsesBlock_token2;
   aux_sym_ppUsesBlock_token3]; ACTIONS 2973 [sym_kAdd; sym_kSub]; ACTIONS 2968 [sym_kAt;
   sym_kTrue; sym_kFalse]; ACTIONS 3 [sym__space]; ACTIONS 5 [sym_ppDirective];
   ACTIONS 3 [sym_comment]; ACTIONS 2968 [sym_ppFragmentExpr; sym__literalStringMultiline;
   sym_identifier]; ACTIONS 2978 [sym_kDefault; sym_kNodefault]; ACTIONS 2981 [sym_kDispId];
   ACTIONS 2968 [sym_kGeneric; sym_kSpecialize; sym_kOperator]; ACTIONS 2984 [sym_kPublic];
   ACTIONS 2968 [sym_kForward]; ACTIONS 2978 [sym_kStatic; sym_kVirtual; sym_kAbstract;
   sym_kDynamic; sym_kOverride; sym_kOverload; sym_kReintroduce; sym_kStdcall; sym_kCdecl;
   sym_kCppdecl; sym_kPascal; sym_kRegister; sym_kMwpascal]; ACTIONS 2968 [sym_kExternal];
   ACTIONS 2987 [sym_kMessage]; ACTIONS 2990 [sym_kDeprecated]; ACTIONS 2978 [sym_kExperimental;
   sym_kPlatform; sym_kUnimplemented; sym_kCvar]; ACTIONS 2993 [sym_kExport];
   ACTIONS 2978 [sym_kFar; sym_kNear; sym_kSafecall; sym_kAssembler; sym_kNostackframe;
   sym_kInterrupt; sym_kNoreturn; sym_kIocheck; sym_kLocal; sym_kHardfloat; sym_kSoftfloat;
   sym_kMs_abi_default; sym_kMs_abi_cdecl; sym_kSaveregisters; sym_kSysv_abi_default;
   sym_kSysv_abi_cdecl; sym_kVectorcall; sym_kVarargs; sym_kWinapi]; ACTIONS 2996 [sym_kAlias];
   ACTIONS 2968 [sym_kAsm; sym_kBegin; sym_kCase; sym_kClass; sym_kConst; sym_kConstructor;
   sym_kDestructor; sym_kExports; sym_kFor; sym_kFunction; sym_kGoto; sym_kIf; sym_kInherited];
   ACTIONS 1016 [sym_kInline]; ACTIONS 2968 [sym_kLabel; sym_kNil; sym_kNot; sym_kProcedure;
   sym_kProperty; sym_kRaise; sym_kRepeat; sym_kResourcestring; sym_kString; sym_kThreadvar;
   sym_kTry; sym_kType; sym_kUses; sym_kVar; sym_kWhile; sym_kWith]].

(** State 435. *)
Definition ts_parse_table_435 : parse_row :=
  [STATE 6273 [sym_if]; STATE 6303 [sym_ifElse; sym_while; sym_repeat; sym_for; sym_foreach;
   sym_try; sym_case; sym_block; sym_asm; sym_with; sym_raise; sym_statement; sym_goto;
   sym__statement]; STATE 15875 [sym_ifTr; sym_ifElseTr; sym_whileTr; sym_repeatTr; sym_forTr;
   sym_foreachTr; sym_tryTr; sym_caseTr]; STATE 14967 [sym_blockTr]; STATE 15875 [sym_asmTr;
   sym_withTr; sym_raiseTr; sym_statementTr; sym_gotoTr; sym__statementTr];
   STATE 13420 [sym_assignment]; STATE 11684 [sym_varAssignDef]; STATE 13420 [sym_varDef;
   sym_constDef]; STATE 6307 [sym_label]; STATE 15875 [sym__statementsTr];
   STATE 15436 [sym_statementsTr]; STATE 8128 [sym__expr; sym_exprConditional];
   STATE 7533 [sym__ref; sym_lambda; sym_inherited; sym_exprDot; sym_exprDeref; sym_exprAs;
   sym_exprTpl; sym_exprSubscript; sym_exprCall]; STATE 8128 [sym_exprBinary; sym_exprUnary];
   STATE 7533 [sym_exprParens; sym_exprBrackets; sym__literal; sym_literalString];
   STATE 6915 [sym__literalString; sym_literalChar]; STATE 7533 [sym_literalNumber];
   STATE 7570 [sym__literalInt; sym__literalFloat]; STATE 1383 [sym__ppIf];
   STATE 6303 [sym__ppStatementBlock]; STATE 11951 [aux_sym_labeledStatement_repeat1];
   STATE 860 [aux_sym__statementsTr_repeat1]; STATE 6915 [aux_sym_literalString_repeat1];
   ACTIONS 925 [anon_sym_SEMI]; ACTIONS 927 [anon_sym_LBRACK]; ACTIONS 929 [anon_sym_LPAREN];
   ACTIONS 931 [aux_sym__literalString_token1]; ACTIONS 933 [anon_sym_POUND];
   ACTIONS 935 [aux_sym__literalInt_token1]; ACTIONS 937 [aux_sym__literalInt_token2;
   aux_sym__literalInt_token3]; ACTIONS 935 [aux_sym__literalFloat_token1];
   ACTIONS 411 [aux_sym_ppUsesBlock_token1]; ACTIONS 939 [sym_kAdd; sym_kSub];
   ACTIONS 941 [sym_kAt]; ACTIONS 943 [sym_kTrue; sym_kFalse]; ACTIONS 945 [sym_labelNumber];
   ACTIONS 3 [sym__space]; ACTIONS 5 [sym_ppDirective]; ACTIONS 3 [sym_comment];
   ACTIONS 943 [sym_ppFragmentExpr]; ACTIONS 925 [sym_ppFragmentStmt];
   ACTIONS 931 [sym__literalStringMultiline]; ACTIONS 947 [sym_identifier];
   ACTIONS 949 [sym_kSpecialize]; ACTIONS 951 [sym_kAsm]; ACTIONS 953 [sym_kBegin];
   ACTIONS 955 [sym_kCase]; ACTIONS 957 [sym_kConst]; ACTIONS 959 [sym_kFor];
   ACTIONS 961 [sym_kFunction]; ACTIONS 963 [sym_kGoto]; ACTIONS 965 [sym_kIf];
   ACTIONS 967 [sym_kInherited]; ACTIONS 943 [sym_kNil]; ACTIONS 941 [sym_kNot];
   ACTIONS 961 [sym_kProcedure]; ACTIONS 969 [sym_kRaise]; ACTIONS 971 [sym_kRepeat];
   ACTIONS 973 [sym_kString]; ACTIONS 975 [sym_kTry]; ACTIONS 2999 [sym_kUntil];
   ACTIONS 979 [sym_kVar]; ACTIONS 981 [sym_kWhile]; ACTIONS 983 [sym_kWith]].

(** State 436. *)
Definition ts_parse_table_436 : parse_row :=
  [STATE 2899 [sym__ppIf]; STATE 996 [sym__procAttributeNoExt];
   STATE 1005 [sym__procAttributesPp]; STATE 15262 [sym_procAttribute];
   STATE 178 [aux_sym__declProc_repeat1]; ACTIONS 3001 [anon_sym_SEMI; anon_sym_COMMA];
   ACTIONS 3003 [anon_sym_LBRACK]; ACTIONS 3006 [anon_sym_LPAREN];
   ACTIONS 3001 [aux_sym__literalString_token1; anon_sym_POUND];
   ACTIONS 3006 [aux_sym__literalInt_token1]; ACTIONS 3001 [aux_sym__literalInt_token2;
   aux_sym__literalInt_token3]; ACTIONS 3006 [aux_sym__literalFloat_token1];
   ACTIONS 3008 [aux_sym_ppUsesBlock_token1]; ACTIONS 3001 [aux_sym_ppUsesBlock_token2;
   aux_sym_ppUsesBlock_token3]; ACTIONS 3006 [sym_kAdd; sym_kSub]; ACTIONS 3001 [sym_kAt;
   sym_kTrue; sym_kFalse]; ACTIONS 3 [sym__space]; ACTIONS 5 [sym_ppDirective];
   ACTIONS 3 [sym_comment]; ACTIONS 3001 [sym_ppFragmentExpr; sym__literalStringMultiline;
   sym_identifier]; ACTIONS 3011 [sym_kDefault; sym_kNodefault]; ACTIONS 3014 [sym_kDispId];
   ACTIONS 3001 [sym_kGeneric; sym_kSpecialize; sym_kOperator]; ACTIONS 3017 [sym_kPublic];
   ACTIONS 3001 [sym_kForward]; ACTIONS 3011 [sym_kStatic; sym_kVirtual; sym_kAbstract;
   sym_kDynamic; sym_kOverride; sym_kOverload; sym_kReintroduce; sym_kStdcall; sym_kCdecl;
   sym_kCppdecl; sym_kPascal; sym_kRegister; sym_kMwpascal]; ACTIONS 3001 [sym_kExternal];
   ACTIONS 3020 [sym_kMessage]; ACTIONS 3023 [sym_kDeprecated]; ACTIONS 3011 [sym_kExperimental;
   sym_kPlatform; sym_kUnimplemented; sym_kCvar]; ACTIONS 3026 [sym_kExport];
   ACTIONS 3011 [sym_kFar; sym_kNear; sym_kSafecall; sym_kAssembler; sym_kNostackframe;
   sym_kInterrupt; sym_kNoreturn; sym_kIocheck; sym_kLocal; sym_kHardfloat; sym_kSoftfloat;
   sym_kMs_abi_default; sym_kMs_abi_cdecl; sym_kSaveregisters; sym_kSysv_abi_default;
   sym_kSysv_abi_cdecl; sym_kVectorcall; sym_kVarargs; sym_kWinapi]; ACTIONS 3029 [sym_kAlias];
   ACTIONS 3001 [sym_kAsm; sym_kBegin; sym_kCase; sym_kClass; sym_kConst; sym_kConstructor;
   sym_kDestructor; sym_kExports; sym_kFor; sym_kFunction; sym_kGoto; sym_kIf; sym_kInherited];
   ACTIONS 1016 [sym_kInline]; ACTIONS 3001 [sym_kLabel; sym_kNil; sym_kNot; sym_kProcedure;
   sym_kProperty; sym_kRaise; sym_kRepeat; sym_kResourcestring; sym_kString; sym_kThreadvar;
   sym_kTry; sym_kType; sym_kUses; sym_kVar; sym_kWhile; sym_kWith]].

(** State 437. *)
Definition ts_parse_table_437 : parse_row :=
  [STATE 6273 [sym_if]; STATE 6303 [sym_ifElse; sym_while; sym_repeat; sym_for; sym_foreach;
   sym_try; sym_case; sym_block; sym_asm; sym_with; sym_raise; sym_statement; sym_goto;
   sym__statement]; STATE 15875 [sym_ifTr; sym_ifElseTr; sym_whileTr; sym_repeatTr; sym_forTr;
   sym_foreachTr; sym_tryTr; sym_caseTr]; STATE 14967 [sym_blockTr]; STATE 15875 [sym_asmTr;
   sym_withTr; sym_raiseTr; sym_statementTr; sym_gotoTr; sym__statementTr];
   STATE 13420 [sym_assignment]; STATE 11684 [sym_varAssignDef]; STATE 13420 [sym_varDef;
   sym_constDef]; STATE 6307 [sym_label]; STATE 15875 [sym__statementsTr];
   STATE 15513 [sym_statementsTr]; STATE 8128 [sym__expr; sym_exprConditional];
   STATE 7533 [sym__ref; sym_lambda; sym_inherited; sym_exprDot; sym_exprDeref; sym_exprAs;
   sym_exprTpl; sym_exprSubscript; sym_exprCall]; STATE 8128 [sym_exprBinary; sym_exprUnary];
   STATE 7533 [sym_exprParens; sym_exprBrackets; sym__literal; sym_literalString];
   STATE 6915 [sym__literalString; sym_literalChar]; STATE 7533 [sym_literalNumber];
   STATE 7570 [sym__literalInt; sym__literalFloat]; STATE 1383 [sym__ppIf];
   STATE 6303 [sym__ppStatementBlock]; STATE 11951 [aux_sym_labeledStatement_repeat1];
   STATE 860 [aux_sym__statementsTr_repeat1]; STATE 6915 [aux_sym_literalString_repeat1];
   ACTIONS 925 [anon_sym_SEMI]; ACTIONS 927 [anon_sym_LBRACK]; ACTIONS 929 [anon_sym_LPAREN];
   ACTIONS 931 [aux_sym__literalString_token1]; ACTIONS 933 [anon_sym_POUND];
   ACTIONS 935 [aux_sym__literalInt_token1]; ACTIONS 937 [aux_sym__literalInt_token2;
   aux_sym__literalInt_token3]; ACTIONS 935 [aux_sym__literalFloat_token1];
   ACTIONS 411 [aux_sym_ppUsesBlock_token1]; ACTIONS 939 [sym_kAdd; sym_kSub];
   ACTIONS 941 [sym_kAt]; ACTIONS 943 [sym_kTrue; sym_kFalse]; ACTIONS 945 [sym_labelNumber];
   ACTIONS 3 [sym__space]; ACTIONS 5 [sym_ppDirective]; ACTIONS 3 [sym_comment];
   ACTIONS 943 [sym_ppFragmentExpr]; ACTIONS 925 [sym_ppFragmentStmt];
   ACTIONS 931 [sym__literalStringMultiline]; ACTIONS 947 [sym_identifier];
   ACTIONS 949 [sym_kSpecialize]; ACTIONS 951 [sym_kAsm]; ACTIONS 953 [sym_kBegin];
   ACTIONS 955 [sym_kCase]; ACTIONS 957 [sym_kConst]; ACTIONS 959 [sym_kFor];
   ACTIONS 961 [sym_kFunction]; ACTIONS 963 [sym_kGoto]; ACTIONS 965 [sym_kIf];
   ACTIONS 967 [sym_kInherited]; ACTIONS 943 [sym_kNil]; ACTIONS 941 [sym_kNot];
   ACTIONS 961 [sym_kProcedure]; ACTIONS 969 [sym_kRaise]; ACTIONS 971 [sym_kRepeat];
   ACTIONS 973 [sym_kString]; ACTIONS 975 [sym_kTry]; ACTIONS 3032 [sym_kUntil];
   ACTIONS 979 [sym_kVar]; ACTIONS 981 [sym_kWhile]; ACTIONS 983 [sym_kWith]].

(** State 438. *)
Definition ts_parse_table_438 : parse_row :=
  [STATE 2899 [sym__ppIf]; STATE 996 [sym__procAttributeNoExt];
   STATE 1005 [sym__procAttributesPp]; STATE 15262 [sym_procAttribute];
   STATE 179 [aux_sym__declProc_repeat1]; ACTIONS 3034 [anon_sym_SEMI; anon_sym_COMMA];
   ACTIONS 3036 [anon_sym_LBRACK]; ACTIONS 3039 [anon_sym_LPAREN];
   ACTIONS 3034 [aux_sym__literalString_token1; anon_sym_POUND];
   ACTIONS 3039 [aux_sym__literalInt_token1]; ACTIONS 3034 [aux_sym__literalInt_token2;
   aux_sym__literalInt_token3]; ACTIONS 3039 [aux_sym__literalFloat_token1];
   ACTIONS 3041 [aux_sym_ppUsesBlock_token1]; ACTIONS 3034 [aux_sym_ppUsesBlock_token2;
   aux_sym_ppUsesBlock_token3]; ACTIONS 3039 [sym_kAdd; sym_kSub]; ACTIONS 3034 [sym_kAt;
   sym_kTrue; sym_kFalse]; ACTIONS 3 [sym__space]; ACTIONS 5 [sym_ppDirective];
   ACTIONS 3 [sym_comment]; ACTIONS 3034 [sym_ppFragmentExpr; sym__literalStringMultiline;
   sym_identifier]; ACTIONS 3044 [sym_kDefault; sym_kNodefault]; ACTIONS 3047 [sym_kDispId];
   ACTIONS 3034 [sym_kGeneric; sym_kSpecialize; sym_kOperator]; ACTIONS 3050 [sym_kPublic];
   ACTIONS 3034 [sym_kForward]; ACTIONS 3044 [sym_kStatic; sym_kVirtual; sym_kAbstract;
   sym_kDynamic; sym_kOverride; sym_kOverload; sym_kReintroduce; sym_kStdcall; sym_kCdecl;
   sym_kCppdecl; sym_kPascal; sym_kRegister; sym_kMwpascal]; ACTIONS 3034 [sym_kExternal];
   ACTIONS 3053 [sym_kMessage]; ACTIONS 3056 [sym_kDeprecated]; ACTIONS 3044 [sym_kExperimental;
   sym_kPlatform; sym_kUnimplemented; sym_kCvar]; ACTIONS 3059 [sym_kExport];
   ACTIONS 3044 [sym_kFar; sym_kNear; sym_kSafecall; sym_kAssembler; sym_kNostackframe;
   sym_kInterrupt; sym_kNoreturn; sym_kIocheck; sym_kLocal; sym_kHardfloat; sym_kSoftfloat;
   sym_kMs_abi_default; sym_kMs_abi_cdecl; sym_kSaveregisters; sym_kSysv_abi_default;
   sym_kSysv_abi_cdecl; sym_kVectorcall; sym_kVarargs; sym_kWinapi]; ACTIONS 3062 [sym_kAlias];
   ACTIONS 3034 [sym_kAsm; sym_kBegin; sym_kCase; sym_kClass; sym_kConst; sym_kConstructor;
   sym_kDestructor; sym_kExports; sym_kFor; sym_kFunction; sym_kGoto; sym_kIf; sym_kInherited];
   ACTIONS 1016 [sym_kInline]; ACTIONS 3034 [sym_kLabel; sym_kNil; sym_kNot; sym_kProcedure;
   sym_kProperty; sym_kRaise; sym_kRepeat; sym_kResourcestring; sym_kString; sym_kThreadvar;
   sym_kTry; sym_kType; sym_kUses; sym_kVar; sym_kWhile; sym_kWith]].

(** State 439. *)
Definition ts_parse_table_439 : parse_row :=
  [STATE 6273 [sym_if]; STATE 6303 [sym_ifElse; sym_while; sym_repeat; sym_for; sym_foreach;
   sym_try; sym_case; sym_block; sym_asm; sym_with; sym_raise; sym_statement; sym_goto;
   sym__statement]; STATE 15875 [sym_ifTr; sym_ifElseTr; sym_whileTr; sym_repeatTr; sym_forTr;
   sym_foreachTr; sym_tryTr; sym_caseTr]; STATE 14967 [sym_blockTr]; STATE 15875 [sym_asmTr;
   sym_withTr; sym_raiseTr; sym_statementTr; sym_gotoTr; sym__statementTr];
   STATE 13420 [sym_assignment]; STATE 11684 [sym_varAssignDef]; STATE 13420 [sym_varDef;
   sym_constDef]; STATE 6307 [sym_label]; STATE 15875 [sym__statementsTr];
   STATE 15553 [sym_statementsTr]; STATE 8128 [sym__expr; sym_exprConditional];
   STATE 7533 [sym__ref; sym_lambda; sym_inherited; sym_exprDot; sym_exprDeref; sym_exprAs;
   sym_exprTpl; sym_exprSubscript; sym_exprCall]; STATE 8128 [sym_exprBinary; sym_exprUnary];
   STATE 7533 [sym_exprParens; sym_exprBrackets; sym__literal; sym_literalString];
   STATE 6915 [sym__literalString; sym_literalChar]; STATE 7533 [sym_literalNumber];
   STATE 7570 [sym__literalInt; sym__literalFloat]; STATE 1383 [sym__ppIf];
   STATE 6303 [sym__ppStatementBlock]; STATE 11951 [aux_sym_labeledStatement_repeat1];
   STATE 860 [aux_sym__statementsTr_repeat1]; STATE 6915 [aux_sym_literalString_repeat1];
   ACTIONS 925 [anon_sym_SEMI]; ACTIONS 927 [anon_sym_LBRACK]; ACTIONS 929 [anon_sym_LPAREN];
   ACTIONS 931 [aux_sym__literalString_token1]; ACTIONS 933 [anon_sym_POUND];
   ACTIONS 935 [aux_sym__literalInt_token1]; ACTIONS 937 [aux_sym__literalInt_token2;
   aux_sym__literalInt_token3]; ACTIONS 935 [aux_sym__literalFloat_token1];
   ACTIONS 411 [aux_sym_ppUsesBlock_token1]; ACTIONS 939 [sym_kAdd; sym_kSub];
   ACTIONS 941 [sym_kAt]; ACTIONS 943 [sym_kTrue; sym_kFalse]; ACTIONS 945 [sym_labelNumber];
   ACTIONS 3 [sym__space]; ACTIONS 5 [sym_ppDirective]; ACTIONS 3 [sym_comment];
   ACTIONS 943 [sym_ppFragmentExpr]; ACTIONS 925 [sym_ppFragmentStmt];
   ACTIONS 931 [sym__literalStringMultiline]; ACTIONS 947 [sym_identifier];
   ACTIONS 949 [sym_kSpecialize]; ACTIONS 951 [sym_kAsm]; ACTIONS 953 [sym_kBegin];
   ACTIONS 955 [sym_kCase]; ACTIONS 957 [sym_kConst]; ACTIONS 959 [sym_kFor];
   ACTIONS 961 [sym_kFunction]; ACTIONS 963 [sym_kGoto]; ACTIONS 965 [sym_kIf];
   ACTIONS 967 [sym_kInherited]; ACTIONS 943 [sym_kNil]; ACTIONS 941 [sym_kNot];
   ACTIONS 961 [sym_kProcedure]; ACTIONS 969 [sym_kRaise]; ACTIONS 971 [sym_kRepeat];
   ACTIONS 973 [sym_kString]; ACTIONS 975 [sym_kTry]; ACTIONS 3065 [sym_kUntil];
   ACTIONS 979 [sym_kVar]; ACTIONS 981 [sym_kWhile]; ACTIONS 983 [sym_kWith]].

(** State 440. *)
Definition ts_parse_table_440 : parse_row :=
  [STATE 2899 [sym__ppIf]; STATE 996 [sym__procAttributeNoExt];
   STATE 1005 [sym__procAttributesPp]; STATE 15262 [sym_procAttribute];
   STATE 183 [aux_sym__declProc_repeat1]; ACTIONS 3067 [anon_sym_SEMI; anon_sym_COMMA];
   ACTIONS 3069 [anon_sym_LBRACK]; ACTIONS 3072 [anon_sym_LPAREN];
   ACTIONS 3067 [aux_sym__literalString_token1; anon_sym_POUND];
   ACTIONS 3072 [aux_sym__literalInt_token1]; ACTIONS 3067 [aux_sym__literalInt_token2;
   aux_sym__literalInt_token3]; ACTIONS 3072 [aux_sym__literalFloat_token1];
   ACTIONS 3074 [aux_sym_ppUsesBlock_token1]; ACTIONS 3067 [aux_sym_ppUsesBlock_token2;
   aux_sym_ppUsesBlock_token3]; ACTIONS 3072 [sym_kAdd; sym_kSub]; ACTIONS 3067 [sym_kAt;
   sym_kTrue; sym_kFalse]; ACTIONS 3 [sym__space]; ACTIONS 5 [sym_ppDirective];
   ACTIONS 3 [sym_comment]; ACTIONS 3067 [sym_ppFragmentExpr; sym__literalStringMultiline;
   sym_identifier]; ACTIONS 3077 [sym_kDefault; sym_kNodefault]; ACTIONS 3080 [sym_kDispId];
   ACTIONS 3067 [sym_kGeneric; sym_kSpecialize; sym_kOperator]; ACTIONS 3083 [sym_kPublic];
   ACTIONS 3067 [sym_kForward]; ACTIONS 3077 [sym_kStatic; sym_kVirtual; sym_kAbstract;
   sym_kDynamic; sym_kOverride; sym_kOverload; sym_kReintroduce; sym_kStdcall; sym_kCdecl;
   sym_kCppdecl; sym_kPascal; sym_kRegister; sym_kMwpascal]; ACTIONS 3067 [sym_kExternal];
   ACTIONS 3086 [sym_kMessage]; ACTIONS 3089 [sym_kDeprecated]; ACTIONS 3077 [sym_kExperimental;
   sym_kPlatform; sym_kUnimplemented; sym_kCvar]; ACTIONS 3092 [sym_kExport];
   ACTIONS 3077 [sym_kFar; sym_kNear; sym_kSafecall; sym_kAssembler; sym_kNostackframe;
   sym_kInterrupt; sym_kNoreturn; sym_kIocheck; sym_kLocal; sym_kHardfloat; sym_kSoftfloat;
   sym_kMs_abi_default; sym_kMs_abi_cdecl; sym_kSaveregisters; sym_kSysv_abi_default;
   sym_kSysv_abi_cdecl; sym_kVectorcall; sym_kVarargs; sym_kWinapi]; ACTIONS 3095 [sym_kAlias];
   ACTIONS 3067 [sym_kAsm; sym_kBegin; sym_kCase; sym_kClass; sym_kConst; sym_kConstructor;
   sym_kDestructor; sym_kExports; sym_kFor; sym_kFunction; sym_kGoto; sym_kIf; sym_kInherited];
   ACTIONS 1016 [sym_kInline]; ACTIONS 3067 [sym_kLabel; sym_kNil; sym_kNot; sym_kProcedure;
   sym_kProperty; sym_kRaise; sym_kRepeat; sym_kResourcestring; sym_kString; sym_kThreadvar;
   sym_kTry; sym_kType; sym_kUses; sym_kVar; sym_kWhile; sym_kWith]].

(** State 441. *)
Definition ts_parse_table_441 : parse_row :=
  [STATE 6273 [sym_if]; STATE 6303 [sym_ifElse; sym_while; sym_repeat; sym_for; sym_foreach;
   sym_try; sym_case; sym_block; sym_asm; sym_with; sym_raise; sym_statement; sym_goto;
   sym__statement]; STATE 15875 [sym_ifTr; sym_ifElseTr; sym_whileTr; sym_repeatTr; sym_forTr;
   sym_foreachTr; sym_tryTr; sym_caseTr]; STATE 14967 [sym_blockTr]; STATE 15875 [sym_asmTr;
   sym_withTr; sym_raiseTr; sym_statementTr; sym_gotoTr; sym__statementTr];
   STATE 13420 [sym_assignment]; STATE 11684 [sym_varAssignDef]; STATE 13420 [sym_varDef;
   sym_constDef]; STATE 6307 [sym_label]; STATE 15875 [sym__statementsTr];
   STATE 15591 [sym_statementsTr]; STATE 8128 [sym__expr; sym_exprConditional];
   STATE 7533 [sym__ref; sym_lambda; sym_inherited; sym_exprDot; sym_exprDeref; sym_exprAs;
   sym_exprTpl; sym_exprSubscript; sym_exprCall]; STATE 8128 [sym_exprBinary; sym_exprUnary];
   STATE 7533 [sym_exprParens; sym_exprBrackets; sym__literal; sym_literalString];
   STATE 6915 [sym__literalString; sym_literalChar]; STATE 7533 [sym_literalNumber];
   STATE 7570 [sym__literalInt; sym__literalFloat]; STATE 1383 [sym__ppIf];
   STATE 6303 [sym__ppStatementBlock]; STATE 11951 [aux_sym_labeledStatement_repeat1];
   STATE 860 [aux_sym__statementsTr_repeat1]; STATE 6915 [aux_sym_literalString_repeat1];
   ACTIONS 925 [anon_sym_SEMI]; ACTIONS 927 [anon_sym_LBRACK]; ACTIONS 929 [anon_sym_LPAREN];
   ACTIONS 931 [aux_sym__literalString_token1]; ACTIONS 933 [anon_sym_POUND];
   ACTIONS 935 [aux_sym__literalInt_token1]; ACTIONS 937 [aux_sym__literalInt_token2;
   aux_sym__literalInt_token3]; ACTIONS 935 [aux_sym__literalFloat_token1];
   ACTIONS 411 [aux_sym_ppUsesBlock_token1]; ACTIONS 939 [sym_kAdd; sym_kSub];
   ACTIONS 941 [sym_kAt]; ACTIONS 943 [sym_kTrue; sym_kFalse]; ACTIONS 945 [sym_labelNumber];
   ACTIONS 3 [sym__space]; ACTIONS 5 [sym_ppDirective]; ACTIONS 3 [sym_comment];
   ACTIONS 943 [sym_ppFragmentExpr]; ACTIONS 925 [sym_ppFragmentStmt];
   ACTIONS 931 [sym__literalStringMultiline]; ACTIONS 947 [sym_identifier];
   ACTIONS 949 [sym_kSpecialize]; ACTIONS 951 [sym_kAsm]; ACTIONS 953 [sym_kBegin];
   ACTIONS 955 [sym_kCase]; ACTIONS 957 [sym_kConst]; ACTIONS 959 [sym_kFor];
   ACTIONS 961 [sym_kFunction]; ACTIONS 963 [sym_kGoto]; ACTIONS 965 [sym_kIf];
   ACTIONS 967 [sym_kInherited]; ACTIONS 943 [sym_kNil]; ACTIONS 941 [sym_kNot];
   ACTIONS 961 [sym_kProcedure]; ACTIONS 969 [sym_kRaise]; ACTIONS 971 [sym_kRepeat];
   ACTIONS 973 [sym_kString]; ACTIONS 975 [sym_kTry]; ACTIONS 3098 [sym_kUntil];
   ACTIONS 979 [sym_kVar]; ACTIONS 981 [sym_kWhile]; ACTIONS 983 [sym_kWith]].

(** State 442. *)
Definition ts_parse_table_442 : parse_row :=
  [STATE 2899 [sym__ppIf]; STATE 996 [sym__procAttributeNoExt];
   STATE 1005 [sym__procAttributesPp]; STATE 15262 [sym_procAttribute];
   STATE 183 [aux_sym__declProc_repeat1]; ACTIONS 3100 [anon_sym_SEMI; anon_sym_COMMA];
   ACTIONS 3102 [anon_sym_LBRACK]; ACTIONS 3105 [anon_sym_LPAREN];
   ACTIONS 3100 [aux_sym__literalString_token1; anon_sym_POUND];
   ACTIONS 3105 [aux_sym__literalInt_token1]; ACTIONS 3100 [aux_sym__literalInt_token2;
   aux_sym__literalInt_token3]; ACTIONS 3105 [aux_sym__literalFloat_token1];
   ACTIONS 3107 [aux_sym_ppUsesBlock_token1]; ACTIONS 3100 [aux_sym_ppUsesBlock_token2;
   aux_sym_ppUsesBlock_token3]; ACTIONS 3105 [sym_kAdd; sym_kSub]; ACTIONS 3100 [sym_kAt;
   sym_kTrue; sym_kFalse]; ACTIONS 3 [sym__space]; ACTIONS 5 [sym_ppDirective];
   ACTIONS 3 [sym_comment]; ACTIONS 3100 [sym_ppFragmentExpr; sym__literalStringMultiline;
   sym_identifier]; ACTIONS 3110 [sym_kDefault; sym_kNodefault]; ACTIONS 3113 [sym_kDispId];
   ACTIONS 3100 [sym_kGeneric; sym_kSpecialize; sym_kOperator]; ACTIONS 3116 [sym_kPublic];
   ACTIONS 3100 [sym_kForward]; ACTIONS 3110 [sym_kStatic; sym_kVirtual; sym_kAbstract;
   sym_kDynamic; sym_kOverride; sym_kOverload; sym_kReintroduce; sym_kStdcall; sym_kCdecl;
   sym_kCppdecl; sym_kPascal; sym_kRegister; sym_kMwpascal]; ACTIONS 3100 [sym_kExternal];
   ACTIONS 3119 [sym_kMessage]; ACTIONS 3122 [sym_kDeprecated]; ACTIONS 3110 [sym_kExperimental;
   sym_kPlatform; sym_kUnimplemented; sym_kCvar]; ACTIONS 3125 [sym_kExport];
   ACTIONS 3110 [sym_kFar; sym_kNear; sym_kSafecall; sym_kAssembler; sym_kNostackframe;
   sym_kInterrupt; sym_kNoreturn; sym_kIocheck; sym_kLocal; sym_kHardfloat; sym_kSoftfloat;
   sym_kMs_abi_default; sym_kMs_abi_cdecl; sym_kSaveregisters; sym_kSysv_abi_default;
   sym_kSysv_abi_cdecl; sym_kVectorcall; sym_kVarargs; sym_kWinapi]; ACTIONS 3128 [sym_kAlias];
   ACTIONS 3100 [sym_kAsm; sym_kBegin; sym_kCase; sym_kClass; sym_kConst; sym_kConstructor;
   sym_kDestructor; sym_kExports; sym_kFor; sym_kFunction; sym_kGoto; sym_kIf; sym_kInherited];
   ACTIONS 1016 [sym_kInline]; ACTIONS 3100 [sym_kLabel; sym_kNil; sym_kNot; sym_kProcedure;
   sym_kProperty; sym_kRaise; sym_kRepeat; sym_kResourcestring; sym_kString; sym_kThreadvar;
   sym_kTry; sym_kType; sym_kUses; sym_kVar; sym_kWhile; sym_kWith]].

(** State 443. *)
Definition ts_parse_table_443 : parse_row :=
  [STATE 6273 [sym_if]; STATE 6303 [sym_ifElse; sym_while; sym_repeat; sym_for; sym_foreach;
   sym_try; sym_case; sym_block; sym_asm; sym_with; sym_raise; sym_statement; sym_goto;
   sym__statement]; STATE 15875 [sym_ifTr; sym_ifElseTr; sym_whileTr; sym_repeatTr; sym_forTr;
   sym_foreachTr; sym_tryTr; sym_caseTr]; STATE 14967 [sym_blockTr]; STATE 15875 [sym_asmTr;
   sym_withTr; sym_raiseTr; sym_statementTr; sym_gotoTr; sym__statementTr];
   STATE 13420 [sym_assignment]; STATE 11684 [sym_varAssignDef]; STATE 13420 [sym_varDef;
   sym_constDef]; STATE 6307 [sym_label]; STATE 15875 [sym__statementsTr];
   STATE 15627 [sym_statementsTr]; STATE 8128 [sym__expr; sym_exprConditional];
   STATE 7533 [sym__ref; sym_lambda; sym_inherited; sym_exprDot; sym_exprDeref; sym_exprAs;
   sym_exprTpl; sym_exprSubscript; sym_exprCall]; STATE 8128 [sym_exprBinary; sym_exprUnary];
   STATE 7533 [sym_exprParens; sym_exprBrackets; sym__literal; sym_literalString];
   STATE 6915 [sym__literalString; sym_literalChar]; STATE 7533 [sym_literalNumber];
   STATE 7570 [sym__literalInt; sym__literalFloat]; STATE 1383 [sym__ppIf];
   STATE 6303 [sym__ppStatementBlock]; STATE 11951 [aux_sym_labeledStatement_repeat1];
   STATE 860 [aux_sym__statementsTr_repeat1]; STATE 6915 [aux_sym_literalString_repeat1];
   ACTIONS 925 [anon_sym_SEMI]; ACTIONS 927 [anon_sym_LBRACK]; ACTIONS 929 [anon_sym_LPAREN];
   ACTIONS 931 [aux_sym__literalString_token1]; ACTIONS 933 [anon_sym_POUND];
   ACTIONS 935 [aux_sym__literalInt_token1]; ACTIONS 937 [aux_sym__literalInt_token2;
   aux_sym__literalInt_token3]; ACTIONS 935 [aux_sym__literalFloat_token1];
   ACTIONS 411 [aux_sym_ppUsesBlock_token1]; ACTIONS 939 [sym_kAdd; sym_kSub];
   ACTIONS 941 [sym_kAt]; ACTIONS 943 [sym_kTrue; sym_kFalse]; ACTIONS 945 [sym_labelNumber];
   ACTIONS 3 [sym__space]; ACTIONS 5 [sym_ppDirective]; ACTIONS 3 [sym_comment];
   ACTIONS 943 [sym_ppFragmentExpr]; ACTIONS 925 [sym_ppFragmentStmt];
   ACTIONS 931 [sym__literalStringMultiline]; ACTIONS 947 [sym_identifier];
   ACTIONS 949 [sym_kSpecialize]; ACTIONS 951 [sym_kAsm]; ACTIONS 953 [sym_kBegin];
   ACTIONS 955 [sym_kCase]; ACTIONS 957 [sym_kConst]; ACTIONS 959 [sym_kFor];
   ACTIONS 961 [sym_kFunction]; ACTIONS 963 [sym_kGoto]; ACTIONS 965 [sym_kIf];
   ACTIONS 967 [sym_kInherited]; ACTIONS 943 [sym_kNil]; ACTIONS 941 [sym_kNot];
   ACTIONS 961 [sym_kProcedure]; ACTIONS 969 [sym_kRaise]; ACTIONS 971 [sym_kRepeat];
   ACTIONS 973 [sym_kString]; ACTIONS 975 [sym_kTry]; ACTIONS 3131 [sym_kUntil];
   ACTIONS 979 [sym_kVar]; ACTIONS 981 [sym_kWhile]; ACTIONS 983 [sym_kWith]].

(** State 444. *)
Definition ts_parse_table_444 : parse_row :=
  [STATE 2899 [sym__ppIf]; STATE 996 [sym__procAttributeNoExt];
   STATE 1005 [sym__procAttributesPp]; STATE 15262 [sym_procAttribute];
   STATE 183 [aux_sym__declProc_repeat1]; ACTIONS 3133 [anon_sym_SEMI; anon_sym_COMMA];
   ACTIONS 3135 [anon_sym_LBRACK]; ACTIONS 3138 [anon_sym_LPAREN];
   ACTIONS 3133 [aux_sym__literalString_token1; anon_sym_POUND];
   ACTIONS 3138 [aux_sym__literalInt_token1]; ACTIONS 3133 [aux_sym__literalInt_token2;
   aux_sym__literalInt_token3]; ACTIONS 3138 [aux_sym__literalFloat_token1];
   ACTIONS 3140 [aux_sym_ppUsesBlock_token1]; ACTIONS 3133 [aux_sym_ppUsesBlock_token2;
   aux_sym_ppUsesBlock_token3]; ACTIONS 3138 [sym_kAdd; sym_kSub]; ACTIONS 3133 [sym_kAt;
   sym_kTrue; sym_kFalse]; ACTIONS 3 [sym__space]; ACTIONS 5 [sym_ppDirective];
   ACTIONS 3 [sym_comment]; ACTIONS 3133 [sym_ppFragmentExpr; sym__literalStringMultiline;
   sym_identifier]; ACTIONS 3143 [sym_kDefault; sym_kNodefault]; ACTIONS 3146 [sym_kDispId];
   ACTIONS 3133 [sym_kGeneric; sym_kSpecialize; sym_kOperator]; ACTIONS 3149 [sym_kPublic];
   ACTIONS 3133 [sym_kForward]; ACTIONS 3143 [sym_kStatic; sym_kVirtual; sym_kAbstract;
   sym_kDynamic; sym_kOverride; sym_kOverload; sym_kReintroduce; sym_kStdcall; sym_kCdecl;
   sym_kCppdecl; sym_kPascal; sym_kRegister; sym_kMwpascal]; ACTIONS 3133 [sym_kExternal];
   ACTIONS 3152 [sym_kMessage]; ACTIONS 3155 [sym_kDeprecated]; ACTIONS 3143 [sym_kExperimental;
   sym_kPlatform; sym_kUnimplemented; sym_kCvar]; ACTIONS 3158 [sym_kExport];
   ACTIONS 3143 [sym_kFar; sym_kNear; sym_kSafecall; sym_kAssembler; sym_kNostackframe;
   sym_kInterrupt; sym_kNoreturn; sym_kIocheck; sym_kLocal; sym_kHardfloat; sym_kSoftfloat;
   sym_kMs_abi_default; sym_kMs_abi_cdecl; sym_kSaveregisters; sym_kSysv_abi_default;
   sym_kSysv_abi_cdecl; sym_kVectorcall; sym_kVarargs; sym_kWinapi]; ACTIONS 3161 [sym_kAlias];
   ACTIONS 3133 [sym_kAsm; sym_kBegin; sym_kCase; sym_kClass; sym_kConst; sym_kConstructor;
   sym_kDestructor; sym_kExports; sym_kFor; sym_kFunction; sym_kGoto; sym_kIf; sym_kInherited];
   ACTIONS 1016 [sym_kInline]; ACTIONS 3133 [sym_kLabel; sym_kNil; sym_kNot; sym_kProcedure;
   sym_kProperty; sym_kRaise; sym_kRepeat; sym_kResourcestring; sym_kString; sym_kThreadvar;
   sym_kTry; sym_kType; sym_kUses; sym_kVar; sym_kWhile; sym_kWith]].

(** State 445. *)
Definition ts_parse_table_445 : parse_row :=
  [STATE 6273 [sym_if]; STATE 6303 [sym_ifElse; sym_while; sym_repeat; sym_for; sym_foreach;
   sym_try; sym_case; sym_block; sym_asm; sym_with; sym_raise; sym_statement; sym_goto;
   sym__statement]; STATE 15875 [sym_ifTr; sym_ifElseTr; sym_whileTr; sym_repeatTr; sym_forTr;
   sym_foreachTr; sym_tryTr; sym_caseTr]; STATE 14967 [sym_blockTr]; STATE 15875 [sym_asmTr;
   sym_withTr; sym_raiseTr; sym_statementTr; sym_gotoTr; sym__statementTr];
   STATE 13420 [sym_assignment]; STATE 11684 [sym_varAssignDef]; STATE 13420 [sym_varDef;
   sym_constDef]; STATE 6307 [sym_label]; STATE 15875 [sym__statementsTr];
   STATE 15662 [sym_statementsTr]; STATE 8128 [sym__expr; sym_exprConditional];
   STATE 7533 [sym__ref; sym_lambda; sym_inherited; sym_exprDot; sym_exprDeref; sym_exprAs;
   sym_exprTpl; sym_exprSubscript; sym_exprCall]; STATE 8128 [sym_exprBinary; sym_exprUnary];
   STATE 7533 [sym_exprParens; sym_exprBrackets; sym__literal; sym_literalString];
   STATE 6915 [sym__literalString; sym_literalChar]; STATE 7533 [sym_literalNumber];
   STATE 7570 [sym__literalInt; sym__literalFloat]; STATE 1383 [sym__ppIf];
   STATE 6303 [sym__ppStatementBlock]; STATE 11951 [aux_sym_labeledStatement_repeat1];
   STATE 860 [aux_sym__statementsTr_repeat1]; STATE 6915 [aux_sym_literalString_repeat1];
   ACTIONS 925 [anon_sym_SEMI]; ACTIONS 927 [anon_sym_LBRACK]; ACTIONS 929 [anon_sym_LPAREN];
   ACTIONS 931 [aux_sym__literalString_token1]; ACTIONS 933 [anon_sym_POUND];
   ACTIONS 935 [aux_sym__literalInt_token1]; ACTIONS 937 [aux_sym__literalInt_token2;
   aux_sym__literalInt_token3]; ACTIONS 935 [aux_sym__literalFloat_token1];
   ACTIONS 411 [aux_sym_ppUsesBlock_token1]; ACTIONS 939 [sym_kAdd; sym_kSub];
   ACTIONS 941 [sym_kAt]; ACTIONS 943 [sym_kTrue; sym_kFalse]; ACTIONS 945 [sym_labelNumber];
   ACTIONS 3 [sym__space]; ACTIONS 5 [sym_ppDirective]; ACTIONS 3 [sym_comment];
   ACTIONS 943 [sym_ppFragmentExpr]; ACTIONS 925 [sym_ppFragmentStmt];
   ACTIONS 931 [sym__literalStringMultiline]; ACTIONS 947 [sym_identifier];
   ACTIONS 949 [sym_kSpecialize]; ACTIONS 951 [sym_kAsm]; ACTIONS 953 [sym_kBegin];
   ACTIONS 955 [sym_kCase]; ACTIONS 957 [sym_kConst]; ACTIONS 959 [sym_kFor];
   ACTIONS 961 [sym_kFunction]; ACTIONS 963 [sym_kGoto]; ACTIONS 965 [sym_kIf];
   ACTIONS 967 [sym_kInherited]; ACTIONS 943 [sym_kNil]; ACTIONS 941 [sym_kNot];
   ACTIONS 961 [sym_kProcedure]; ACTIONS 969 [sym_kRaise]; ACTIONS 971 [sym_kRepeat];
   ACTIONS 973 [sym_kString]; ACTIONS 975 [sym_kTry]; ACTIONS 3164 [sym_kUntil];
   ACTIONS 979 [sym_kVar]; ACTIONS 981 [sym_kWhile]; ACTIONS 983 [sym_kWith]].

(** State 446. *)
Definition ts_parse_table_446 : parse_row :=
  [STATE 6213 [sym_if]; STATE 6327 [sym_ifElse; sym_while; sym_repeat; sym_for; sym_foreach;
   sym_try; sym_case; sym_block; sym_asm; sym_with; sym_raise; sym_statement; sym_goto;
   sym__statement]; STATE 16006 [sym_ifTr; sym_ifElseTr; sym_whileTr; sym_repeatTr; sym_forTr;
   sym_foreachTr; sym_tryTr; sym_caseTr]; STATE 14251 [sym_blockTr]; STATE 16006 [sym_asmTr;
   sym_withTr; sym_raiseTr; sym_statementTr; sym_gotoTr; sym__statementTr];
   STATE 13915 [sym_assignment]; STATE 11785 [sym_varAssignDef]; STATE 13915 [sym_varDef;
   sym_constDef]; STATE 6166 [sym_label]; STATE 16006 [sym__statementsTr]; STATE 8019 [sym__expr;
   sym_exprConditional]; STATE 7478 [sym__ref; sym_lambda; sym_inherited; sym_exprDot;
   sym_exprDeref; sym_exprAs; sym_exprTpl; sym_exprSubscript; sym_exprCall];
   STATE 8019 [sym_exprBinary; sym_exprUnary]; STATE 7478 [sym_exprParens; sym_exprBrackets;
   sym__literal; sym_literalString]; STATE 6664 [sym__literalString; sym_literalChar];
   STATE 7478 [sym_literalNumber]; STATE 7742 [sym__literalInt; sym__literalFloat];
   STATE 1380 [sym__ppIf]; STATE 6327 [sym__ppStatementBlock];
   STATE 11840 [aux_sym_labeledStatement_repeat1]; STATE 863 [aux_sym__statementsTr_repeat1];
   STATE 6664 [aux_sym_literalString_repeat1]; ACTIONS 397 [anon_sym_SEMI];
   ACTIONS 3166 [anon_sym_COLON]; ACTIONS 399 [anon_sym_LBRACK]; ACTIONS 401 [anon_sym_LPAREN];
   ACTIONS 403 [aux_sym__literalString_token1]; ACTIONS 405 [anon_sym_POUND];
   ACTIONS 407 [aux_sym__literalInt_token1]; ACTIONS 409 [aux_sym__literalInt_token2;
   aux_sym__literalInt_token3]; ACTIONS 407 [aux_sym__literalFloat_token1];
   ACTIONS 411 [aux_sym_ppUsesBlock_token1]; ACTIONS 413 [sym_kAdd; sym_kSub];
   ACTIONS 415 [sym_kAt]; ACTIONS 417 [sym_kTrue; sym_kFalse]; ACTIONS 419 [sym_labelNumber];
   ACTIONS 3 [sym__space]; ACTIONS 5 [sym_ppDirective]; ACTIONS 3 [sym_comment];
   ACTIONS 417 [sym_ppFragmentExpr]; ACTIONS 397 [sym_ppFragmentStmt];
   ACTIONS 403 [sym__literalStringMultiline]; ACTIONS 421 [sym_identifier];
   ACTIONS 423 [sym_kSpecialize]; ACTIONS 427 [sym_kAsm]; ACTIONS 429 [sym_kBegin];
   ACTIONS 431 [sym_kCase]; ACTIONS 433 [sym_kConst]; ACTIONS 3168 [sym_kEnd];
   ACTIONS 437 [sym_kFor]; ACTIONS 439 [sym_kFunction]; ACTIONS 441 [sym_kGoto];
   ACTIONS 443 [sym_kIf]; ACTIONS 445 [sym_kInherited]; ACTIONS 417 [sym_kNil];
   ACTIONS 415 [sym_kNot]; ACTIONS 439 [sym_kProcedure]; ACTIONS 447 [sym_kRaise];
   ACTIONS 449 [sym_kRepeat]; ACTIONS 451 [sym_kString]; ACTIONS 453 [sym_kTry];
   ACTIONS 455 [sym_kVar]; ACTIONS 457 [sym_kWhile]; ACTIONS 459 [sym_kWith]].

(** State 447. *)
Definition ts_parse_table_447 : parse_row :=
  [STATE 6213 [sym_if]; STATE 6327 [sym_ifElse; sym_while; sym_repeat; sym_for; sym_foreach;
   sym_try; sym_case; sym_block; sym_asm; sym_with; sym_raise; sym_statement; sym_goto;
   sym__statement]; STATE 14836 [sym_ifTr; sym_ifElseTr; sym_whileTr; sym_repeatTr; sym_forTr;
   sym_foreachTr; sym_tryTr; sym_caseTr]; STATE 14251 [sym_blockTr]; STATE 14836 [sym_asmTr;
   sym_withTr; sym_raiseTr; sym_statementTr; sym_gotoTr; sym__statementTr];
   STATE 13915 [sym_assignment]; STATE 11785 [sym_varAssignDef]; STATE 13915 [sym_varDef;
   sym_constDef]; STATE 6166 [sym_label]; STATE 14836 [sym__statementsTr]; STATE 8019 [sym__expr;
   sym_exprConditional]; STATE 7478 [sym__ref; sym_lambda; sym_inherited; sym_exprDot;
   sym_exprDeref; sym_exprAs; sym_exprTpl; sym_exprSubscript; sym_exprCall];
   STATE 8019 [sym_exprBinary; sym_exprUnary]; STATE 7478 [sym_exprParens; sym_exprBrackets;
   sym__literal; sym_literalString]; STATE 6664 [sym__literalString; sym_literalChar];
   STATE 7478 [sym_literalNumber]; STATE 7742 [sym__literalInt; sym__literalFloat];
   STATE 1380 [sym__ppIf]; STATE 6327 [sym__ppStatementBlock];
   STATE 11840 [aux_sym_labeledStatement_repeat1]; STATE 863 [aux_sym__statementsTr_repeat1];
   STATE 6664 [aux_sym_literalString_repeat1]; ACTIONS 397 [anon_sym_SEMI];
   ACTIONS 399 [anon_sym_LBRACK]; ACTIONS 401 [anon_sym_LPAREN];
   ACTIONS 403 [aux_sym__literalString_token1]; ACTIONS 405 [anon_sym_POUND];
   ACTIONS 407 [aux_sym__literalInt_token1]; ACTIONS 409 [aux_sym__literalInt_token2;
   aux_sym__literalInt_token3]; ACTIONS 407 [aux_sym__literalFloat_token1];
   ACTIONS 411 [aux_sym_ppUsesBlock_token1]; ACTIONS 413 [sym_kAdd; sym_kSub];
   ACTIONS 415 [sym_kAt]; ACTIONS 417 [sym_kTrue; sym_kFalse]; ACTIONS 419 [sym_labelNumber];
   ACTIONS 3 [sym__space]; ACTIONS 5 [sym_ppDirective]; ACTIONS 3 [sym_comment];
   ACTIONS 417 [sym_ppFragmentExpr]; ACTIONS 397 [sym_ppFragmentStmt];
   ACTIONS 403 [sym__literalStringMultiline]; ACTIONS 421 [sym_identifier];
   ACTIONS 423 [sym_kSpecialize]; ACTIONS 427 [sym_kAsm]; ACTIONS 429 [sym_kBegin];
   ACTIONS 431 [sym_kCase]; ACTIONS 433 [sym_kConst]; ACTIONS 2174 [sym_kEnd];
   ACTIONS 437 [sym_kFor]; ACTIONS 439 [sym_kFunction]; ACTIONS 441 [sym_kGoto];
   ACTIONS 443 [sym_kIf]; ACTIONS 445 [sym_kInherited]; ACTIONS 417 [sym_kNil];
   ACTIONS 415 [sym_kNot]; ACTIONS 439 [sym_kProcedure]; ACTIONS 447 [sym_kRaise];
   ACTIONS 449 [sym_kRepeat]; ACTIONS 451 [sym_kString]; ACTIONS 453 [sym_kTry];
   ACTIONS 455 [sym_kVar]; ACTIONS 457 [sym_kWhile]; ACTIONS 459 [sym_kWith]].

(** State 448. *)
Definition ts_parse_table_448 : parse_row :=
  [STATE 6213 [sym_if]; STATE 6327 [sym_ifElse; sym_while; sym_repeat; sym_for; sym_foreach;
   sym_try; sym_case; sym_block; sym_asm; sym_with; sym_raise; sym_statement; sym_goto;
   sym__statement]; STATE 15902 [sym_ifTr; sym_ifElseTr; sym_whileTr; sym_repeatTr; sym_forTr;
   sym_foreachTr; sym_tryTr; sym_caseTr]; STATE 14251 [sym_blockTr]; STATE 15902 [sym_asmTr;
   sym_withTr; sym_raiseTr; sym_statementTr; sym_gotoTr; sym__statementTr];
   STATE 13915 [sym_assignment]; STATE 11785 [sym_varAssignDef]; STATE 13915 [sym_varDef;
   sym_constDef]; STATE 6166 [sym_label]; STATE 15902 [sym__statementsTr]; STATE 8019 [sym__expr;
   sym_exprConditional]; STATE 7478 [sym__ref; sym_lambda; sym_inherited; sym_exprDot;
   sym_exprDeref; sym_exprAs; sym_exprTpl; sym_exprSubscript; sym_exprCall];
   STATE 8019 [sym_exprBinary; sym_exprUnary]; STATE 7478 [sym_exprParens; sym_exprBrackets;
   sym__literal; sym_literalString]; STATE 6664 [sym__literalString; sym_literalChar];
   STATE 7478 [sym_literalNumber]; STATE 7742 [sym__literalInt; sym__literalFloat];
   STATE 1380 [sym__ppIf]; STATE 6327 [sym__ppStatementBlock];
   STATE 11840 [aux_sym_labeledStatement_repeat1]; STATE 863 [aux_sym__statementsTr_repeat1];
   STATE 6664 [aux_sym_literalString_repeat1]; ACTIONS 397 [anon_sym_SEMI];
   ACTIONS 399 [anon_sym_LBRACK]; ACTIONS 401 [anon_sym_LPAREN];
   ACTIONS 403 [aux_sym__literalString_token1]; ACTIONS 405 [anon_sym_POUND];
   ACTIONS 407 [aux_sym__literalInt_token1]; ACTIONS 409 [aux_sym__literalInt_token2;
   aux_sym__literalInt_token3]; ACTIONS 407 [aux_sym__literalFloat_token1];
   ACTIONS 411 [aux_sym_ppUsesBlock_token1]; ACTIONS 413 [sym_kAdd; sym_kSub];
   ACTIONS 415 [sym_kAt]; ACTIONS 417 [sym_kTrue; sym_kFalse]; ACTIONS 419 [sym_labelNumber];
   ACTIONS 3 [sym__space]; ACTIONS 5 [sym_ppDirective]; ACTIONS 3 [sym_comment];
   ACTIONS 417 [sym_ppFragmentExpr]; ACTIONS 397 [sym_ppFragmentStmt];
   ACTIONS 403 [sym__literalStringMultiline]; ACTIONS 421 [sym_identifier];
   ACTIONS 423 [sym_kSpecialize]; ACTIONS 427 [sym_kAsm]; ACTIONS 429 [sym_kBegin];
   ACTIONS 431 [sym_kCase]; ACTIONS 433 [sym_kConst]; ACTIONS 1611 [sym_kEnd];
   ACTIONS 437 [sym_kFor]; ACTIONS 439 [sym_kFunction]; ACTIONS 441 [sym_kGoto];
   ACTIONS 443 [sym_kIf]; ACTIONS 445 [sym_kInherited]; ACTIONS 417 [sym_kNil];
   ACTIONS 415 [sym_kNot]; ACTIONS 439 [sym_kProcedure]; ACTIONS 447 [sym_kRaise];
   ACTIONS 449 [sym_kRepeat]; ACTIONS 451 [sym_kString]; ACTIONS 453 [sym_kTry];
   ACTIONS 455 [sym_kVar]; ACTIONS 457 [sym_kWhile]; ACTIONS 459 [sym_kWith]].

(** State 449. *)
Definition ts_parse_table_449 : parse_row :=
  [STATE 6213 [sym_if]; STATE 6327 [sym_ifElse; sym_while; sym_repeat; sym_for; sym_foreach;
   sym_try; sym_case; sym_block; sym_asm; sym_with; sym_raise; sym_statement; sym_goto;
   sym__statement]; STATE 15941 [sym_ifTr; sym_ifElseTr; sym_whileTr; sym_repeatTr; sym_forTr;
   sym_foreachTr; sym_tryTr; sym_caseTr]; STATE 14251 [sym_blockTr]; STATE 15941 [sym_asmTr;
   sym_withTr; sym_raiseTr; sym_statementTr; sym_gotoTr; sym__statementTr];
   STATE 13915 [sym_assignment]; STATE 11785 [sym_varAssignDef]; STATE 13915 [sym_varDef;
   sym_constDef]; STATE 6166 [sym_label]; STATE 15941 [sym__statementsTr]; STATE 8019 [sym__expr;
   sym_exprConditional]; STATE 7478 [sym__ref; sym_lambda; sym_inherited; sym_exprDot;
   sym_exprDeref; sym_exprAs; sym_exprTpl; sym_exprSubscript; sym_exprCall];
   STATE 8019 [sym_exprBinary; sym_exprUnary]; STATE 7478 [sym_exprParens; sym_exprBrackets;
   sym__literal; sym_literalString]; STATE 6664 [sym__literalString; sym_literalChar];
   STATE 7478 [sym_literalNumber]; STATE 7742 [sym__literalInt; sym__literalFloat];
   STATE 1380 [sym__ppIf]; STATE 6327 [sym__ppStatementBlock];
   STATE 11840 [aux_sym_labeledStatement_repeat1]; STATE 863 [aux_sym__statementsTr_repeat1];
   STATE 6664 [aux_sym_literalString_repeat1]; ACTIONS 397 [anon_sym_SEMI];
   ACTIONS 399 [anon_sym_LBRACK]; ACTIONS 401 [anon_sym_LPAREN];
   ACTIONS 403 [aux_sym__literalString_token1]; ACTIONS 405 [anon_sym_POUND];
   ACTIONS 407 [aux_sym__literalInt_token1]; ACTIONS 409 [aux_sym__literalInt_token2;
   aux_sym__literalInt_token3]; ACTIONS 407 [aux_sym__literalFloat_token1];
   ACTIONS 411 [aux_sym_ppUsesBlock_token1]; ACTIONS 413 [sym_kAdd; sym_kSub];
   ACTIONS 415 [sym_kAt]; ACTIONS 417 [sym_kTrue; sym_kFalse]; ACTIONS 419 [sym_labelNumber];
   ACTIONS 3 [sym__space]; ACTIONS 5 [sym_ppDirective]; ACTIONS 3 [sym_comment];
   ACTIONS 417 [sym_ppFragmentExpr]; ACTIONS 397 [sym_ppFragmentStmt];
   ACTIONS 403 [sym__literalStringMultiline]; ACTIONS 421 [sym_identifier];
   ACTIONS 423 [sym_kSpecialize]; ACTIONS 427 [sym_kAsm]; ACTIONS 429 [sym_kBegin];
   ACTIONS 431 [sym_kCase]; ACTIONS 433 [sym_kConst]; ACTIONS 1615 [sym_kEnd];
   ACTIONS 437 [sym_kFor]; ACTIONS 439 [sym_kFunction]; ACTIONS 441 [sym_kGoto];
   ACTIONS 443 [sym_kIf]; ACTIONS 445 [sym_kInherited]; ACTIONS 417 [sym_kNil];
   ACTIONS 415 [sym_kNot]; ACTIONS 439 [sym_kProcedure]; ACTIONS 447 [sym_kRaise];
   ACTIONS 449 [sym_kRepeat]; ACTIONS 451 [sym_kString]; ACTIONS 453 [sym_kTry];
   ACTIONS 455 [sym_kVar]; ACTIONS 457 [sym_kWhile]; ACTIONS 459 [sym_kWith]].

(** State 450. *)
Definition ts_parse_table_450 : parse_row :=
  [STATE 6213 [sym_if]; STATE 6327 [sym_ifElse; sym_while; sym_repeat; sym_for; sym_foreach;
   sym_try; sym_case; sym_block; sym_asm; sym_with; sym_raise; sym_statement; sym_goto;
   sym__statement]; STATE 15956 [sym_ifTr; sym_ifElseTr; sym_whileTr; sym_repeatTr; sym_forTr;
   sym_foreachTr; sym_tryTr; sym_caseTr]; STATE 14251 [sym_blockTr]; STATE 15956 [sym_asmTr;
   sym_withTr; sym_raiseTr; sym_statementTr; sym_gotoTr; sym__statementTr];
   STATE 13915 [sym_assignment]; STATE 11785 [sym_varAssignDef]; STATE 13915 [sym_varDef;
   sym_constDef]; STATE 6166 [sym_label]; STATE 15956 [sym__statementsTr]; STATE 8019 [sym__expr;
   sym_exprConditional]; STATE 7478 [sym__ref; sym_lambda; sym_inherited; sym_exprDot;
   sym_exprDeref; sym_exprAs; sym_exprTpl; sym_exprSubscript; sym_exprCall];
   STATE 8019 [sym_exprBinary; sym_exprUnary]; STATE 7478 [sym_exprParens; sym_exprBrackets;
   sym__literal; sym_literalString]; STATE 6664 [sym__literalString; sym_literalChar];
   STATE 7478 [sym_literalNumber]; STATE 7742 [sym__literalInt; sym__literalFloat];
   STATE 1380 [sym__ppIf]; STATE 6327 [sym__ppStatementBlock];
   STATE 11840 [aux_sym_labeledStatement_repeat1]; STATE 863 [aux_sym__statementsTr_repeat1];
   STATE 6664 [aux_sym_literalString_repeat1]; ACTIONS 397 [anon_sym_SEMI];
   ACTIONS 399 [anon_sym_LBRACK]; ACTIONS 401 [anon_sym_LPAREN];
   ACTIONS 403 [aux_sym__literalString_token1]; ACTIONS 405 [anon_sym_POUND];
   ACTIONS 407 [aux_sym__literalInt_token1]; ACTIONS 409 [aux_sym__literalInt_token2;
   aux_sym__literalInt_token3]; ACTIONS 407 [aux_sym__literalFloat_token1];
   ACTIONS 411 [aux_sym_ppUsesBlock_token1]; ACTIONS 413 [sym_kAdd; sym_kSub];
   ACTIONS 415 [sym_kAt]; ACTIONS 417 [sym_kTrue; sym_kFalse]; ACTIONS 419 [sym_labelNumber];
   ACTIONS 3 [sym__space]; ACTIONS 5 [sym_ppDirective]; ACTIONS 3 [sym_comment];
   ACTIONS 417 [sym_ppFragmentExpr]; ACTIONS 397 [sym_ppFragmentStmt];
   ACTIONS 403 [sym__literalStringMultiline]; ACTIONS 421 [sym_identifier];
   ACTIONS 423 [sym_kSpecialize]; ACTIONS 427 [sym_kAsm]; ACTIONS 429 [sym_kBegin];
   ACTIONS 431 [sym_kCase]; ACTIONS 433 [sym_kConst]; ACTIONS 3170 [sym_kEnd];
   ACTIONS 437 [sym_kFor]; ACTIONS 439 [sym_kFunction]; ACTIONS 441 [sym_kGoto];
   ACTIONS 443 [sym_kIf]; ACTIONS 445 [sym_kInherited]; ACTIONS 417 [sym_kNil];
   ACTIONS 415 [sym_kNot]; ACTIONS 439 [sym_kProcedure]; ACTIONS 447 [sym_kRaise];
   ACTIONS 449 [sym_kRepeat]; ACTIONS 451 [sym_kString]; ACTIONS 453 [sym_kTry];
   ACTIONS 455 [sym_kVar]; ACTIONS 457 [sym_kWhile]; ACTIONS 459 [sym_kWith]].

(** State 451. *)
Definition ts_parse_table_451 : parse_row :=
  [STATE 6213 [sym_if]; STATE 6327 [sym_ifElse; sym_while; sym_repeat; sym_for; sym_foreach;
   sym_try; sym_case; sym_block; sym_asm; sym_with; sym_raise; sym_statement; sym_goto;
   sym__statement]; STATE 14218 [sym_ifTr; sym_ifElseTr; sym_whileTr; sym_repeatTr; sym_forTr;
   sym_foreachTr; sym_tryTr; sym_caseTr]; STATE 14251 [sym_blockTr]; STATE 14218 [sym_asmTr;
   sym_withTr; sym_raiseTr; sym_statementTr; sym_gotoTr; sym__statementTr];
   STATE 13915 [sym_assignment]; STATE 11785 [sym_varAssignDef]; STATE 13915 [sym_varDef;
   sym_constDef]; STATE 6166 [sym_label]; STATE 14218 [sym__statementsTr]; STATE 8019 [sym__expr;
   sym_exprConditional]; STATE 7478 [sym__ref; sym_lambda; sym_inherited; sym_exprDot;
   sym_exprDeref; sym_exprAs; sym_exprTpl; sym_exprSubscript; sym_exprCall];
   STATE 8019 [sym_exprBinary; sym_exprUnary]; STATE 7478 [sym_exprParens; sym_exprBrackets;
   sym__literal; sym_literalString]; STATE 6664 [sym__literalString; sym_literalChar];
   STATE 7478 [sym_literalNumber]; STATE 7742 [sym__literalInt; sym__literalFloat];
   STATE 1380 [sym__ppIf]; STATE 6327 [sym__ppStatementBlock];
   STATE 11840 [aux_sym_labeledStatement_repeat1]; STATE 863 [aux_sym__statementsTr_repeat1];
   STATE 6664 [aux_sym_literalString_repeat1]; ACTIONS 397 [anon_sym_SEMI];
   ACTIONS 399 [anon_sym_LBRACK]; ACTIONS 401 [anon_sym_LPAREN];
   ACTIONS 403 [aux_sym__literalString_token1]; ACTIONS 405 [anon_sym_POUND];
   ACTIONS 407 [aux_sym__literalInt_token1]; ACTIONS 409 [aux_sym__literalInt_token2;
   aux_sym__literalInt_token3]; ACTIONS 407 [aux_sym__literalFloat_token1];
   ACTIONS 411 [aux_sym_ppUsesBlock_token1]; ACTIONS 413 [sym_kAdd; sym_kSub];
   ACTIONS 415 [sym_kAt]; ACTIONS 417 [sym_kTrue; sym_kFalse]; ACTIONS 419 [sym_labelNumber];
   ACTIONS 3 [sym__space]; ACTIONS 5 [sym_ppDirective]; ACTIONS 3 [sym_comment];
   ACTIONS 417 [sym_ppFragmentExpr]; ACTIONS 397 [sym_ppFragmentStmt];
   ACTIONS 403 [sym__literalStringMultiline]; ACTIONS 421 [sym_identifier];
   ACTIONS 423 [sym_kSpecialize]; ACTIONS 427 [sym_kAsm]; ACTIONS 429 [sym_kBegin];
   ACTIONS 431 [sym_kCase]; ACTIONS 433 [sym_kConst]; ACTIONS 3172 [sym_kEnd];
   ACTIONS 437 [sym_kFor]; ACTIONS 439 [sym_kFunction]; ACTIONS 441 [sym_kGoto];
   ACTIONS 443 [sym_kIf]; ACTIONS 445 [sym_kInherited]; ACTIONS 417 [sym_kNil];
   ACTIONS 415 [sym_kNot]; ACTIONS 439 [sym_kProcedure]; ACTIONS 447 [sym_kRaise];
   ACTIONS 449 [sym_kRepeat]; ACTIONS 451 [sym_kString]; ACTIONS 453 [sym_kTry];
   ACTIONS 455 [sym_kVar]; ACTIONS 457 [sym_kWhile]; ACTIONS 459 [sym_kWith]].

(** State 452. *)
Definition ts_parse_table_452 : parse_row :=
  [STATE 6213 [sym_if]; STATE 6327 [sym_ifElse; sym_while; sym_repeat; sym_for; sym_foreach;
   sym_try; sym_case; sym_block; sym_asm; sym_with; sym_raise; sym_statement; sym_goto;
   sym__statement]; STATE 14331 [sym_ifTr; sym_ifElseTr; sym_whileTr; sym_repeatTr; sym_forTr;
   sym_foreachTr; sym_tryTr; sym_caseTr]; STATE 14251 [sym_blockTr]; STATE 14331 [sym_asmTr;
   sym_withTr; sym_raiseTr; sym_statementTr; sym_gotoTr; sym__statementTr];
   STATE 13915 [sym_assignment]; STATE 11785 [sym_varAssignDef]; STATE 13915 [sym_varDef;
   sym_constDef]; STATE 6166 [sym_label]; STATE 14331 [sym__statementsTr]; STATE 8019 [sym__expr;
   sym_exprConditional]; STATE 7478 [sym__ref; sym_lambda; sym_inherited; sym_exprDot;
   sym_exprDeref; sym_exprAs; sym_exprTpl; sym_exprSubscript; sym_exprCall];
   STATE 8019 [sym_exprBinary; sym_exprUnary]; STATE 7478 [sym_exprParens; sym_exprBrackets;
   sym__literal; sym_literalString]; STATE 6664 [sym__literalString; sym_literalChar];
   STATE 7478 [sym_literalNumber]; STATE 7742 [sym__literalInt; sym__literalFloat];
   STATE 1380 [sym__ppIf]; STATE 6327 [sym__ppStatementBlock];
   STATE 11840 [aux_sym_labeledStatement_repeat1]; STATE 863 [aux_sym__statementsTr_repeat1];
   STATE 6664 [aux_sym_literalString_repeat1]; ACTIONS 397 [anon_sym_SEMI];
   ACTIONS 399 [anon_sym_LBRACK]; ACTIONS 401 [anon_sym_LPAREN];
   ACTIONS 403 [aux_sym__literalString_token1]; ACTIONS 405 [anon_sym_POUND];
   ACTIONS 407 [aux_sym__literalInt_token1]; ACTIONS 409 [aux_sym__literalInt_token2;
   aux_sym__literalInt_token3]; ACTIONS 407 [aux_sym__literalFloat_token1];
   ACTIONS 411 [aux_sym_ppUsesBlock_token1]; ACTIONS 413 [sym_kAdd; sym_kSub];
   ACTIONS 415 [sym_kAt]; ACTIONS 417 [sym_kTrue; sym_kFalse]; ACTIONS 419 [sym_labelNumber];
   ACTIONS 3 [sym__space]; ACTIONS 5 [sym_ppDirective]; ACTIONS 3 [sym_comment];
   ACTIONS 417 [sym_ppFragmentExpr]; ACTIONS 397 [sym_ppFragmentStmt];
   ACTIONS 403 [sym__literalStringMultiline]; ACTIONS 421 [sym_identifier];
   ACTIONS 423 [sym_kSpecialize]; ACTIONS 427 [sym_kAsm]; ACTIONS 429 [sym_kBegin];
   ACTIONS 431 [sym_kCase]; ACTIONS 433 [sym_kConst]; ACTIONS 3174 [sym_kEnd];
   ACTIONS 437 [sym_kFor]; ACTIONS 439 [sym_kFunction]; ACTIONS 441 [sym_kGoto];
   ACTIONS 443 [sym_kIf]; ACTIONS 445 [sym_kInherited]; ACTIONS 417 [sym_kNil];
   ACTIONS 415 [sym_kNot]; ACTIONS 439 [sym_kProcedure]; ACTIONS 447 [sym_kRaise];
   ACTIONS 449 [sym_kRepeat]; ACTIONS 451 [sym_kString]; ACTIONS 453 [sym_kTry];
   ACTIONS 455 [sym_kVar]; ACTIONS 457 [sym_kWhile]; ACTIONS 459 [sym_kWith]].

(** State 453. *)
Definition ts_parse_table_453 : parse_row :=
  [STATE 6213 [sym_if]; STATE 6327 [sym_ifElse; sym_while; sym_repeat; sym_for; sym_foreach;
   sym_try; sym_case; sym_block; sym_asm; sym_with; sym_raise; sym_statement; sym_goto;
   sym__statement]; STATE 14984 [sym_ifTr; sym_ifElseTr; sym_whileTr; sym_repeatTr; sym_forTr;
   sym_foreachTr; sym_tryTr; sym_caseTr]; STATE 14251 [sym_blockTr]; STATE 14984 [sym_asmTr;
   sym_withTr; sym_raiseTr; sym_statementTr; sym_gotoTr; sym__statementTr];
   STATE 13915 [sym_assignment]; STATE 11785 [sym_varAssignDef]; STATE 13915 [sym_varDef;
   sym_constDef]; STATE 6166 [sym_label]; STATE 14984 [sym__statementsTr]; STATE 8019 [sym__expr;
   sym_exprConditional]; STATE 7478 [sym__ref; sym_lambda; sym_inherited; sym_exprDot;
   sym_exprDeref; sym_exprAs; sym_exprTpl; sym_exprSubscript; sym_exprCall];
   STATE 8019 [sym_exprBinary; sym_exprUnary]; STATE 7478 [sym_exprParens; sym_exprBrackets;
   sym__literal; sym_literalString]; STATE 6664 [sym__literalString; sym_literalChar];
   STATE 7478 [sym_literalNumber]; STATE 7742 [sym__literalInt; sym__literalFloat];
   STATE 1380 [sym__ppIf]; STATE 6327 [sym__ppStatementBlock];
   STATE 11840 [aux_sym_labeledStatement_repeat1]; STATE 863 [aux_sym__statementsTr_repeat1];
   STATE 6664 [aux_sym_literalString_repeat1]; ACTIONS 397 [anon_sym_SEMI];
   ACTIONS 399 [anon_sym_LBRACK]; ACTIONS 401 [anon_sym_LPAREN];
   ACTIONS 403 [aux_sym__literalString_token1]; ACTIONS 405 [anon_sym_POUND];
   ACTIONS 407 [aux_sym__literalInt_token1]; ACTIONS 409 [aux_sym__literalInt_token2;
   aux_sym__literalInt_token3]; ACTIONS 407 [aux_sym__literalFloat_token1];
   ACTIONS 411 [aux_sym_ppUsesBlock_token1]; ACTIONS 413 [sym_kAdd; sym_kSub];
   ACTIONS 415 [sym_kAt]; ACTIONS 417 [sym_kTrue; sym_kFalse]; ACTIONS 419 [sym_labelNumber];
   ACTIONS 3 [sym__space]; ACTIONS 5 [sym_ppDirective]; ACTIONS 3 [sym_comment];
   ACTIONS 417 [sym_ppFragmentExpr]; ACTIONS 397 [sym_ppFragmentStmt];
   ACTIONS 403 [sym__literalStringMultiline]; ACTIONS 421 [sym_identifier];
   ACTIONS 423 [sym_kSpecialize]; ACTIONS 427 [sym_kAsm]; ACTIONS 429 [sym_kBegin];
   ACTIONS 431 [sym_kCase]; ACTIONS 433 [sym_kConst]; ACTIONS 1689 [sym_kEnd];
   ACTIONS 437 [sym_kFor]; ACTIONS 439 [sym_kFunction]; ACTIONS 441 [sym_kGoto];
   ACTIONS 443 [sym_kIf]; ACTIONS 445 [sym_kInherited]; ACTIONS 417 [sym_kNil];
   ACTIONS 415 [sym_kNot]; ACTIONS 439 [sym_kProcedure]; ACTIONS 447 [sym_kRaise];
   ACTIONS 449 [sym_kRepeat]; ACTIONS 451 [sym_kString]; ACTIONS 453 [sym_kTry];
   ACTIONS 455 [sym_kVar]; ACTIONS 457 [sym_kWhile]; ACTIONS 459 [sym_kWith]].

(** State 454. *)
Definition ts_parse_table_454 : parse_row :=
  [STATE 6213 [sym_if]; STATE 6327 [sym_ifElse; sym_while; sym_repeat; sym_for; sym_foreach;
   sym_try; sym_case; sym_block; sym_asm; sym_with; sym_raise; sym_statement; sym_goto;
   sym__statement]; STATE 15020 [sym_ifTr; sym_ifElseTr; sym_whileTr; sym_repeatTr; sym_forTr;
   sym_foreachTr; sym_tryTr; sym_caseTr]; STATE 14251 [sym_blockTr]; STATE 15020 [sym_asmTr;
   sym_withTr; sym_raiseTr; sym_statementTr; sym_gotoTr; sym__statementTr];
   STATE 13915 [sym_assignment]; STATE 11785 [sym_varAssignDef]; STATE 13915 [sym_varDef;
   sym_constDef]; STATE 6166 [sym_label]; STATE 15020 [sym__statementsTr]; STATE 8019 [sym__expr;
   sym_exprConditional]; STATE 7478 [sym__ref; sym_lambda; sym_inherited; sym_exprDot;
   sym_exprDeref; sym_exprAs; sym_exprTpl; sym_exprSubscript; sym_exprCall];
   STATE 8019 [sym_exprBinary; sym_exprUnary]; STATE 7478 [sym_exprParens; sym_exprBrackets;
   sym__literal; sym_literalString]; STATE 6664 [sym__literalString; sym_literalChar];
   STATE 7478 [sym_literalNumber]; STATE 7742 [sym__literalInt; sym__literalFloat];
   STATE 1380 [sym__ppIf]; STATE 6327 [sym__ppStatementBlock];
   STATE 11840 [aux_sym_labeledStatement_repeat1]; STATE 863 [aux_sym__statementsTr_repeat1];
   STATE 6664 [aux_sym_literalString_repeat1]; ACTIONS 397 [anon_sym_SEMI];
   ACTIONS 399 [anon_sym_LBRACK]; ACTIONS 401 [anon_sym_LPAREN];
   ACTIONS 403 [aux_sym__literalString_token1]; ACTIONS 405 [anon_sym_POUND];
   ACTIONS 407 [aux_sym__literalInt_token1]; ACTIONS 409 [aux_sym__literalInt_token2;
   aux_sym__literalInt_token3]; ACTIONS 407 [aux_sym__literalFloat_token1];
   ACTIONS 411 [aux_sym_ppUsesBlock_token1]; ACTIONS 413 [sym_kAdd; sym_kSub];
   ACTIONS 415 [sym_kAt]; ACTIONS 417 [sym_kTrue; sym_kFalse]; ACTIONS 419 [sym_labelNumber];
   ACTIONS 3 [sym__space]; ACTIONS 5 [sym_ppDirective]; ACTIONS 3 [sym_comment];
   ACTIONS 417 [sym_ppFragmentExpr]; ACTIONS 397 [sym_ppFragmentStmt];
   ACTIONS 403 [sym__literalStringMultiline]; ACTIONS 421 [sym_identifier];
   ACTIONS 423 [sym_kSpecialize]; ACTIONS 427 [sym_kAsm]; ACTIONS 429 [sym_kBegin];
   ACTIONS 431 [sym_kCase]; ACTIONS 433 [sym_kConst]; ACTIONS 1693 [sym_kEnd];
   ACTIONS 437 [sym_kFor]; ACTIONS 439 [sym_kFunction]; ACTIONS 441 [sym_kGoto];
   ACTIONS 443 [sym_kIf]; ACTIONS 445 [sym_kInherited]; ACTIONS 417 [sym_kNil];
   ACTIONS 415 [sym_kNot]; ACTIONS 439 [sym_kProcedure]; ACTIONS 447 [sym_kRaise];
   ACTIONS 449 [sym_kRepeat]; ACTIONS 451 [sym_kString]; ACTIONS 453 [sym_kTry];
   ACTIONS 455 [sym_kVar]; ACTIONS 457 [sym_kWhile]; ACTIONS 459 [sym_kWith]].

(** State 455. *)
Definition ts_parse_table_455 : parse_row :=
  [STATE 6213 [sym_if]; STATE 6327 [sym_ifElse; sym_while; sym_repeat; sym_for; sym_foreach;
   sym_try; sym_case; sym_block; sym_asm; sym_with; sym_raise; sym_statement; sym_goto;
   sym__statement]; STATE 15038 [sym_ifTr; sym_ifElseTr; sym_whileTr; sym_repeatTr; sym_forTr;
   sym_foreachTr; sym_tryTr; sym_caseTr]; STATE 14251 [sym_blockTr]; STATE 15038 [sym_asmTr;
   sym_withTr; sym_raiseTr; sym_statementTr; sym_gotoTr; sym__statementTr];
   STATE 13915 [sym_assignment]; STATE 11785 [sym_varAssignDef]; STATE 13915 [sym_varDef;
   sym_constDef]; STATE 6166 [sym_label]; STATE 15038 [sym__statementsTr]; STATE 8019 [sym__expr;
   sym_exprConditional]; STATE 7478 [sym__ref; sym_lambda; sym_inherited; sym_exprDot;
   sym_exprDeref; sym_exprAs; sym_exprTpl; sym_exprSubscript; sym_exprCall];
   STATE 8019 [sym_exprBinary; sym_exprUnary]; STATE 7478 [sym_exprParens; sym_exprBrackets;
   sym__literal; sym_literalString]; STATE 6664 [sym__literalString; sym_literalChar];
   STATE 7478 [sym_literalNumber]; STATE 7742 [sym__literalInt; sym__literalFloat];
   STATE 1380 [sym__ppIf]; STATE 6327 [sym__ppStatementBlock];
   STATE 11840 [aux_sym_labeledStatement_repeat1]; STATE 863 [aux_sym__statementsTr_repeat1];
   STATE 6664 [aux_sym_literalString_repeat1]; ACTIONS 397 [anon_sym_SEMI];
   ACTIONS 399 [anon_sym_LBRACK]; ACTIONS 401 [anon_sym_LPAREN];
   ACTIONS 403 [aux_sym__literalString_token1]; ACTIONS 405 [anon_sym_POUND];
   ACTIONS 407 [aux_sym__literalInt_token1]; ACTIONS 409 [aux_sym__literalInt_token2;
   aux_sym__literalInt_token3]; ACTIONS 407 [aux_sym__literalFloat_token1];
   ACTIONS 411 [aux_sym_ppUsesBlock_token1]; ACTIONS 413 [sym_kAdd; sym_kSub];
   ACTIONS 415 [sym_kAt]; ACTIONS 417 [sym_kTrue; sym_kFalse]; ACTIONS 419 [sym_labelNumber];
   ACTIONS 3 [sym__space]; ACTIONS 5 [sym_ppDirective]; ACTIONS 3 [sym_comment];
   ACTIONS 417 [sym_ppFragmentExpr]; ACTIONS 397 [sym_ppFragmentStmt];
   ACTIONS 403 [sym__literalStringMultiline]; ACTIONS 421 [sym_identifier];
   ACTIONS 423 [sym_kSpecialize]; ACTIONS 427 [sym_kAsm]; ACTIONS 429 [sym_kBegin];
   ACTIONS 431 [sym_kCase]; ACTIONS 433 [sym_kConst]; ACTIONS 3176 [sym_kEnd];
   ACTIONS 437 [sym_kFor]; ACTIONS 439 [sym_kFunction]; ACTIONS 441 [sym_kGoto];
   ACTIONS 443 [sym_kIf]; ACTIONS 445 [sym_kInherited]; ACTIONS 417 [sym_kNil];
   ACTIONS 415 [sym_kNot]; ACTIONS 439 [sym_kProcedure]; ACTIONS 447 [sym_kRaise];
   ACTIONS 449 [sym_kRepeat]; ACTIONS 451 [sym_kString]; ACTIONS 453 [sym_kTry];
   ACTIONS 455 [sym_kVar]; ACTIONS 457 [sym_kWhile]; ACTIONS 459 [sym_kWith]].

(** State 456. *)
Definition ts_parse_table_456 : parse_row :=
  [STATE 6213 [sym_if]; STATE 6327 [sym_ifElse; sym_while; sym_repeat; sym_for; sym_foreach;
   sym_try; sym_case; sym_block; sym_asm; sym_with; sym_raise; sym_statement; sym_goto;
   sym__statement]; STATE 15160 [sym_ifTr; sym_ifElseTr; sym_whileTr; sym_repeatTr; sym_forTr;
   sym_foreachTr; sym_tryTr; sym_caseTr]; STATE 14251 [sym_blockTr]; STATE 15160 [sym_asmTr;
   sym_withTr; sym_raiseTr; sym_statementTr; sym_gotoTr; sym__statementTr];
   STATE 13915 [sym_assignment]; STATE 11785 [sym_varAssignDef]; STATE 13915 [sym_varDef;
   sym_constDef]; STATE 6166 [sym_label]; STATE 15160 [sym__statementsTr]; STATE 8019 [sym__expr;
   sym_exprConditional]; STATE 7478 [sym__ref; sym_lambda; sym_inherited; sym_exprDot;
   sym_exprDeref; sym_exprAs; sym_exprTpl; sym_exprSubscript; sym_exprCall];
   STATE 8019 [sym_exprBinary; sym_exprUnary]; STATE 7478 [sym_exprParens; sym_exprBrackets;
   sym__literal; sym_literalString]; STATE 6664 [sym__literalString; sym_literalChar];
   STATE 7478 [sym_literalNumber]; STATE 7742 [sym__literalInt; sym__literalFloat];
   STATE 1380 [sym__ppIf]; STATE 6327 [sym__ppStatementBlock];
   STATE 11840 [aux_sym_labeledStatement_repeat1]; STATE 863 [aux_sym__statementsTr_repeat1];
   STATE 6664 [aux_sym_literalString_repeat1]; ACTIONS 397 [anon_sym_SEMI];
   ACTIONS 399 [anon_sym_LBRACK]; ACTIONS 401 [anon_sym_LPAREN];
   ACTIONS 403 [aux_sym__literalString_token1]; ACTIONS 405 [anon_sym_POUND];
   ACTIONS 407 [aux_sym__literalInt_token1]; ACTIONS 409 [aux_sym__literalInt_token2;
   aux_sym__literalInt_token3]; ACTIONS 407 [aux_sym__literalFloat_token1];
   ACTIONS 411 [aux_sym_ppUsesBlock_token1]; ACTIONS 413 [sym_kAdd; sym_kSub];
   ACTIONS 415 [sym_kAt]; ACTIONS 417 [sym_kTrue; sym_kFalse]; ACTIONS 419 [sym_labelNumber];
   ACTIONS 3 [sym__space]; ACTIONS 5 [sym_ppDirective]; ACTIONS 3 [sym_comment];
   ACTIONS 417 [sym_ppFragmentExpr]; ACTIONS 397 [sym_ppFragmentStmt];
   ACTIONS 403 [sym__literalStringMultiline]; ACTIONS 421 [sym_identifier];
   ACTIONS 423 [sym_kSpecialize]; ACTIONS 427 [sym_kAsm]; ACTIONS 429 [sym_kBegin];
   ACTIONS 431 [sym_kCase]; ACTIONS 433 [sym_kConst]; ACTIONS 3178 [sym_kEnd];
   ACTIONS 437 [sym_kFor]; ACTIONS 439 [sym_kFunction]; ACTIONS 441 [sym_kGoto];
   ACTIONS 443 [sym_kIf]; ACTIONS 445 [sym_kInherited]; ACTIONS 417 [sym_kNil];
   ACTIONS 415 [sym_kNot]; ACTIONS 439 [sym_kProcedure]; ACTIONS 447 [sym_kRaise];
   ACTIONS 449 [sym_kRepeat]; ACTIONS 451 [sym_kString]; ACTIONS 453 [sym_kTry];
   ACTIONS 455 [sym_kVar]; ACTIONS 457 [sym_kWhile]; ACTIONS 459 [sym_kWith]].

(** State 457. *)
Definition ts_parse_table_457 : parse_row :=
  [STATE 6213 [sym_if]; STATE 6327 [sym_ifElse; sym_while; sym_repeat; sym_for; sym_foreach;
   sym_try; sym_case; sym_block; sym_asm; sym_with; sym_raise; sym_statement; sym_goto;
   sym__statement]; STATE 15192 [sym_ifTr; sym_ifElseTr; sym_whileTr; sym_repeatTr; sym_forTr;
   sym_foreachTr; sym_tryTr; sym_caseTr]; STATE 14251 [sym_blockTr]; STATE 15192 [sym_asmTr;
   sym_withTr; sym_raiseTr; sym_statementTr; sym_gotoTr; sym__statementTr];
   STATE 13915 [sym_assignment]; STATE 11785 [sym_varAssignDef]; STATE 13915 [sym_varDef;
   sym_constDef]; STATE 6166 [sym_label]; STATE 15192 [sym__statementsTr]; STATE 8019 [sym__expr;
   sym_exprConditional]; STATE 7478 [sym__ref; sym_lambda; sym_inherited; sym_exprDot;
   sym_exprDeref; sym_exprAs; sym_exprTpl; sym_exprSubscript; sym_exprCall];
   STATE 8019 [sym_exprBinary; sym_exprUnary]; STATE 7478 [sym_exprParens; sym_exprBrackets;
   sym__literal; sym_literalString]; STATE 6664 [sym__literalString; sym_literalChar];
   STATE 7478 [sym_literalNumber]; STATE 7742 [sym__literalInt; sym__literalFloat];
   STATE 1380 [sym__ppIf]; STATE 6327 [sym__ppStatementBlock];
   STATE 11840 [aux_sym_labeledStatement_repeat1]; STATE 863 [aux_sym__statementsTr_repeat1];
   STATE 6664 [aux_sym_literalString_repeat1]; ACTIONS 397 [anon_sym_SEMI];
   ACTIONS 399 [anon_sym_LBRACK]; ACTIONS 401 [anon_sym_LPAREN];
   ACTIONS 403 [aux_sym__literalString_token1]; ACTIONS 405 [anon_sym_POUND];
   ACTIONS 407 [aux_sym__literalInt_token1]; ACTIONS 409 [aux_sym__literalInt_token2;
   aux_sym__literalInt_token3]; ACTIONS 407 [aux_sym__literalFloat_token1];
   ACTIONS 411 [aux_sym_ppUsesBlock_token1]; ACTIONS 413 [sym_kAdd; sym_kSub];
   ACTIONS 415 [sym_kAt]; ACTIONS 417 [sym_kTrue; sym_kFalse]; ACTIONS 419 [sym_labelNumber];
   ACTIONS 3 [sym__space]; ACTIONS 5 [sym_ppDirective]; ACTIONS 3 [sym_comment];
   ACTIONS 417 [sym_ppFragmentExpr]; ACTIONS 397 [sym_ppFragmentStmt];
   ACTIONS 403 [sym__literalStringMultiline]; ACTIONS 421 [sym_identifier];
   ACTIONS 423 [sym_kSpecialize]; ACTIONS 427 [sym_kAsm]; ACTIONS 429 [sym_kBegin];
   ACTIONS 431 [sym_kCase]; ACTIONS 433 [sym_kConst]; ACTIONS 3180 [sym_kEnd];
   ACTIONS 437 [sym_kFor]; ACTIONS 439 [sym_kFunction]; ACTIONS 441 [sym_kGoto];
   ACTIONS 443 [sym_kIf]; ACTIONS 445 [sym_kInherited]; ACTIONS 417 [sym_kNil];
   ACTIONS 415 [sym_kNot]; ACTIONS 439 [sym_kProcedure]; ACTIONS 447 [sym_kRaise];
   ACTIONS 449 [sym_kRepeat]; ACTIONS 451 [sym_kString]; ACTIONS 453 [sym_kTry];
   ACTIONS 455 [sym_kVar]; ACTIONS 457 [sym_kWhile]; ACTIONS 459 [sym_kWith]].

(** State 458. *)
Definition ts_parse_table_458 : parse_row :=
  [STATE 6213 [sym_if]; STATE 6327 [sym_ifElse; sym_while; sym_repeat; sym_for; sym_foreach;
   sym_try; sym_case; sym_block; sym_asm; sym_with; sym_raise; sym_statement; sym_goto;
   sym__statement]; STATE 15787 [sym_ifTr; sym_ifElseTr; sym_whileTr; sym_repeatTr; sym_forTr;
   sym_foreachTr; sym_tryTr; sym_caseTr]; STATE 14251 [sym_blockTr]; STATE 15787 [sym_asmTr;
   sym_withTr; sym_raiseTr; sym_statementTr; sym_gotoTr; sym__statementTr];
   STATE 13915 [sym_assignment]; STATE 11785 [sym_varAssignDef]; STATE 13915 [sym_varDef;
   sym_constDef]; STATE 6166 [sym_label]; STATE 15787 [sym__statementsTr]; STATE 8019 [sym__expr;
   sym_exprConditional]; STATE 7478 [sym__ref; sym_lambda; sym_inherited; sym_exprDot;
   sym_exprDeref; sym_exprAs; sym_exprTpl; sym_exprSubscript; sym_exprCall];
   STATE 8019 [sym_exprBinary; sym_exprUnary]; STATE 7478 [sym_exprParens; sym_exprBrackets;
   sym__literal; sym_literalString]; STATE 6664 [sym__literalString; sym_literalChar];
   STATE 7478 [sym_literalNumber]; STATE 7742 [sym__literalInt; sym__literalFloat];
   STATE 1380 [sym__ppIf]; STATE 6327 [sym__ppStatementBlock];
   STATE 11840 [aux_sym_labeledStatement_repeat1]; STATE 863 [aux_sym__statementsTr_repeat1];
   STATE 6664 [aux_sym_literalString_repeat1]; ACTIONS 397 [anon_sym_SEMI];
   ACTIONS 399 [anon_sym_LBRACK]; ACTIONS 401 [anon_sym_LPAREN];
   ACTIONS 403 [aux_sym__literalString_token1]; ACTIONS 405 [anon_sym_POUND];
   ACTIONS 407 [aux_sym__literalInt_token1]; ACTIONS 409 [aux_sym__literalInt_token2;
   aux_sym__literalInt_token3]; ACTIONS 407 [aux_sym__literalFloat_token1];
   ACTIONS 411 [aux_sym_ppUsesBlock_token1]; ACTIONS 413 [sym_kAdd; sym_kSub];
   ACTIONS 415 [sym_kAt]; ACTIONS 417 [sym_kTrue; sym_kFalse]; ACTIONS 419 [sym_labelNumber];
   ACTIONS 3 [sym__space]; ACTIONS 5 [sym_ppDirective]; ACTIONS 3 [sym_comment];
   ACTIONS 417 [sym_ppFragmentExpr]; ACTIONS 397 [sym_ppFragmentStmt];
   ACTIONS 403 [sym__literalStringMultiline]; ACTIONS 421 [sym_identifier];
   ACTIONS 423 [sym_kSpecialize]; ACTIONS 427 [sym_kAsm]; ACTIONS 429 [sym_kBegin];
   ACTIONS 431 [sym_kCase]; ACTIONS 433 [sym_kConst]; ACTIONS 1705 [sym_kEnd];
   ACTIONS 437 [sym_kFor]; ACTIONS 439 [sym_kFunction]; ACTIONS 441 [sym_kGoto];
   ACTIONS 443 [sym_kIf]; ACTIONS 445 [sym_kInherited]; ACTIONS 417 [sym_kNil];
   ACTIONS 415 [sym_kNot]; ACTIONS 439 [sym_kProcedure]; ACTIONS 447 [sym_kRaise];
   ACTIONS 449 [sym_kRepeat]; ACTIONS 451 [sym_kString]; ACTIONS 453 [sym_kTry];
   ACTIONS 455 [sym_kVar]; ACTIONS 457 [sym_kWhile]; ACTIONS 459 [sym_kWith]].

(** State 459. *)
Definition ts_parse_table_459 : parse_row :=
  [STATE 6213 [sym_if]; STATE 6327 [sym_ifElse; sym_while; sym_repeat; sym_for; sym_foreach;
   sym_try; sym_case; sym_block; sym_asm; sym_with; sym_raise; sym_statement; sym_goto;
   sym__statement]; STATE 15806 [sym_ifTr; sym_ifElseTr; sym_whileTr; sym_repeatTr; sym_forTr;
   sym_foreachTr; sym_tryTr; sym_caseTr]; STATE 14251 [sym_blockTr]; STATE 15806 [sym_asmTr;
   sym_withTr; sym_raiseTr; sym_statementTr; sym_gotoTr; sym__statementTr];
   STATE 13915 [sym_assignment]; STATE 11785 [sym_varAssignDef]; STATE 13915 [sym_varDef;
   sym_constDef]; STATE 6166 [sym_label]; STATE 15806 [sym__statementsTr]; STATE 8019 [sym__expr;
   sym_exprConditional]; STATE 7478 [sym__ref; sym_lambda; sym_inherited; sym_exprDot;
   sym_exprDeref; sym_exprAs; sym_exprTpl; sym_exprSubscript; sym_exprCall];
   STATE 8019 [sym_exprBinary; sym_exprUnary]; STATE 7478 [sym_exprParens; sym_exprBrackets;
   sym__literal; sym_literalString]; STATE 6664 [sym__literalString; sym_literalChar];
   STATE 7478 [sym_literalNumber]; STATE 7742 [sym__literalInt; sym__literalFloat];
   STATE 1380 [sym__ppIf]; STATE 6327 [sym__ppStatementBlock];
   STATE 11840 [aux_sym_labeledStatement_repeat1]; STATE 863 [aux_sym__statementsTr_repeat1];
   STATE 6664 [aux_sym_literalString_repeat1]; ACTIONS 397 [anon_sym_SEMI];
   ACTIONS 399 [anon_sym_LBRACK]; ACTIONS 401 [anon_sym_LPAREN];
   ACTIONS 403 [aux_sym__literalString_token1]; ACTIONS 405 [anon_sym_POUND];
   ACTIONS 407 [aux_sym__literalInt_token1]; ACTIONS 409 [aux_sym__literalInt_token2;
   aux_sym__literalInt_token3]; ACTIONS 407 [aux_sym__literalFloat_token1];
   ACTIONS 411 [aux_sym_ppUsesBlock_token1]; ACTIONS 413 [sym_kAdd; sym_kSub];
   ACTIONS 415 [sym_kAt]; ACTIONS 417 [sym_kTrue; sym_kFalse]; ACTIONS 419 [sym_labelNumber];
   ACTIONS 3 [sym__space]; ACTIONS 5 [sym_ppDirective]; ACTIONS 3 [sym_comment];
   ACTIONS 417 [sym_ppFragmentExpr]; ACTIONS 397 [sym_ppFragmentStmt];
   ACTIONS 403 [sym__literalStringMultiline]; ACTIONS 421 [sym_identifier];
   ACTIONS 423 [sym_kSpecialize]; ACTIONS 427 [sym_kAsm]; ACTIONS 429 [sym_kBegin];
   ACTIONS 431 [sym_kCase]; ACTIONS 433 [sym_kConst]; ACTIONS 1709 [sym_kEnd];
   ACTIONS 437 [sym_kFor]; ACTIONS 439 [sym_kFunction]; ACTIONS 441 [sym_kGoto];
   ACTIONS 443 [sym_kIf]; ACTIONS 445 [sym_kInherited]; ACTIONS 417 [sym_kNil];
   ACTIONS 415 [sym_kNot]; ACTIONS 439 [sym_kProcedure]; ACTIONS 447 [sym_kRaise];
   ACTIONS 449 [sym_kRepeat]; ACTIONS 451 [sym_kString]; ACTIONS 453 [sym_kTry];
   ACTIONS 455 [sym_kVar]; ACTIONS 457 [sym_kWhile]; ACTIONS 459 [sym_kWith]].

(** State 460. *)
Definition ts_parse_table_460 : parse_row :=
  [STATE 6213 [sym_if]; STATE 6327 [sym_ifElse; sym_while; sym_repeat; sym_for; sym_foreach;
   sym_try; sym_case; sym_block; sym_asm; sym_with; sym_raise; sym_statement; sym_goto;
   sym__statement]; STATE 15831 [sym_ifTr; sym_ifElseTr; sym_whileTr; sym_repeatTr; sym_forTr;
   sym_foreachTr; sym_tryTr; sym_caseTr]; STATE 14251 [sym_blockTr]; STATE 15831 [sym_asmTr;
   sym_withTr; sym_raiseTr; sym_statementTr; sym_gotoTr; sym__statementTr];
   STATE 13915 [sym_assignment]; STATE 11785 [sym_varAssignDef]; STATE 13915 [sym_varDef;
   sym_constDef]; STATE 6166 [sym_label]; STATE 15831 [sym__statementsTr]; STATE 8019 [sym__expr;
   sym_exprConditional]; STATE 7478 [sym__ref; sym_lambda; sym_inherited; sym_exprDot;
   sym_exprDeref; sym_exprAs; sym_exprTpl; sym_exprSubscript; sym_exprCall];
   STATE 8019 [sym_exprBinary; sym_exprUnary]; STATE 7478 [sym_exprParens; sym_exprBrackets;
   sym__literal; sym_literalString]; STATE 6664 [sym__literalString; sym_literalChar];
   STATE 7478 [sym_literalNumber]; STATE 7742 [sym__literalInt; sym__literalFloat];
   STATE 1380 [sym__ppIf]; STATE 6327 [sym__ppStatementBlock];
   STATE 11840 [aux_sym_labeledStatement_repeat1]; STATE 863 [aux_sym__statementsTr_repeat1];
   STATE 6664 [aux_sym_literalString_repeat1]; ACTIONS 397 [anon_sym_SEMI];
   ACTIONS 399 [anon_sym_LBRACK]; ACTIONS 401 [anon_sym_LPAREN];
   ACTIONS 403 [aux_sym__literalString_token1]; ACTIONS 405 [anon_sym_POUND];
   ACTIONS 407 [aux_sym__literalInt_token1]; ACTIONS 409 [aux_sym__literalInt_token2;
   aux_sym__literalInt_token3]; ACTIONS 407 [aux_sym__literalFloat_token1];
   ACTIONS 411 [aux_sym_ppUsesBlock_token1]; ACTIONS 413 [sym_kAdd; sym_kSub];
   ACTIONS 415 [sym_kAt]; ACTIONS 417 [sym_kTrue; sym_kFalse]; ACTIONS 419 [sym_labelNumber];
   ACTIONS 3 [sym__space]; ACTIONS 5 [sym_ppDirective]; ACTIONS 3 [sym_comment];
   ACTIONS 417 [sym_ppFragmentExpr]; ACTIONS 397 [sym_ppFragmentStmt];
   ACTIONS 403 [sym__literalStringMultiline]; ACTIONS 421 [sym_identifier];
   ACTIONS 423 [sym_kSpecialize]; ACTIONS 427 [sym_kAsm]; ACTIONS 429 [sym_kBegin];
   ACTIONS 431 [sym_kCase]; ACTIONS 433 [sym_kConst]; ACTIONS 3182 [sym_kEnd];
   ACTIONS 437 [sym_kFor]; ACTIONS 439 [sym_kFunction]; ACTIONS 441 [sym_kGoto];
   ACTIONS 443 [sym_kIf]; ACTIONS 445 [sym_kInherited]; ACTIONS 417 [sym_kNil];
   ACTIONS 415 [sym_kNot]; ACTIONS 439 [sym_kProcedure]; ACTIONS 447 [sym_kRaise];
   ACTIONS 449 [sym_kRepeat]; ACTIONS 451 [sym_kString]; ACTIONS 453 [sym_kTry];
   ACTIONS 455 [sym_kVar]; ACTIONS 457 [sym_kWhile]; ACTIONS 459 [sym_kWith]].

(** State 461. *)
Definition ts_parse_table_461 : parse_row :=
  [STATE 6213 [sym_if]; STATE 6327 [sym_ifElse; sym_while; sym_repeat; sym_for; sym_foreach;
   sym_try; sym_case; sym_block; sym_asm; sym_with; sym_raise; sym_statement; sym_goto;
   sym__statement]; STATE 15990 [sym_ifTr; sym_ifElseTr; sym_whileTr; sym_repeatTr; sym_forTr;
   sym_foreachTr; sym_tryTr; sym_caseTr]; STATE 14251 [sym_blockTr]; STATE 15990 [sym_asmTr;
   sym_withTr; sym_raiseTr; sym_statementTr; sym_gotoTr; sym__statementTr];
   STATE 13915 [sym_assignment]; STATE 11785 [sym_varAssignDef]; STATE 13915 [sym_varDef;
   sym_constDef]; STATE 6166 [sym_label]; STATE 15990 [sym__statementsTr]; STATE 8019 [sym__expr;
   sym_exprConditional]; STATE 7478 [sym__ref; sym_lambda; sym_inherited; sym_exprDot;
   sym_exprDeref; sym_exprAs; sym_exprTpl; sym_exprSubscript; sym_exprCall];
   STATE 8019 [sym_exprBinary; sym_exprUnary]; STATE 7478 [sym_exprParens; sym_exprBrackets;
   sym__literal; sym_literalString]; STATE 6664 [sym__literalString; sym_literalChar];
   STATE 7478 [sym_literalNumber]; STATE 7742 [sym__literalInt; sym__literalFloat];
   STATE 1380 [sym__ppIf]; STATE 6327 [sym__ppStatementBlock];
   STATE 11840 [aux_sym_labeledStatement_repeat1]; STATE 863 [aux_sym__statementsTr_repeat1];
   STATE 6664 [aux_sym_literalString_repeat1]; ACTIONS 397 [anon_sym_SEMI];
   ACTIONS 399 [anon_sym_LBRACK]; ACTIONS 401 [anon_sym_LPAREN];
   ACTIONS 403 [aux_sym__literalString_token1]; ACTIONS 405 [anon_sym_POUND];
   ACTIONS 407 [aux_sym__literalInt_token1]; ACTIONS 409 [aux_sym__literalInt_token2;
   aux_sym__literalInt_token3]; ACTIONS 407 [aux_sym__literalFloat_token1];
   ACTIONS 411 [aux_sym_ppUsesBlock_token1]; ACTIONS 413 [sym_kAdd; sym_kSub];
   ACTIONS 415 [sym_kAt]; ACTIONS 417 [sym_kTrue; sym_kFalse]; ACTIONS 419 [sym_labelNumber];
   ACTIONS 3 [sym__space]; ACTIONS 5 [sym_ppDirective]; ACTIONS 3 [sym_comment];
   ACTIONS 417 [sym_ppFragmentExpr]; ACTIONS 397 [sym_ppFragmentStmt];
   ACTIONS 403 [sym__literalStringMultiline]; ACTIONS 421 [sym_identifier];
   ACTIONS 423 [sym_kSpecialize]; ACTIONS 427 [sym_kAsm]; ACTIONS 429 [sym_kBegin];
   ACTIONS 431 [sym_kCase]; ACTIONS 433 [sym_kConst]; ACTIONS 3184 [sym_kEnd];
   ACTIONS 437 [sym_kFor]; ACTIONS 439 [sym_kFunction]; ACTIONS 441 [sym_kGoto];
   ACTIONS 443 [sym_kIf]; ACTIONS 445 [sym_kInherited]; ACTIONS 417 [sym_kNil];
   ACTIONS 415 [sym_kNot]; ACTIONS 439 [sym_kProcedure]; ACTIONS 447 [sym_kRaise];
   ACTIONS 449 [sym_kRepeat]; ACTIONS 451 [sym_kString]; ACTIONS 453 [sym_kTry];
   ACTIONS 455 [sym_kVar]; ACTIONS 457 [sym_kWhile]; ACTIONS 459 [sym_kWith]].

(** State 462. *)
Definition ts_parse_table_462 : parse_row :=
  [STATE 6213 [sym_if]; STATE 6327 [sym_ifElse; sym_while; sym_repeat; sym_for; sym_foreach;
   sym_try; sym_case; sym_block; sym_asm; sym_with; sym_raise; sym_statement; sym_goto;
   sym__statement]; STATE 14150 [sym_ifTr; sym_ifElseTr; sym_whileTr; sym_repeatTr; sym_forTr;
   sym_foreachTr; sym_tryTr; sym_caseTr]; STATE 14251 [sym_blockTr]; STATE 14150 [sym_asmTr;
   sym_withTr; sym_raiseTr; sym_statementTr; sym_gotoTr; sym__statementTr];
   STATE 13915 [sym_assignment]; STATE 11785 [sym_varAssignDef]; STATE 13915 [sym_varDef;
   sym_constDef]; STATE 6166 [sym_label]; STATE 14150 [sym__statementsTr]; STATE 8019 [sym__expr;
   sym_exprConditional]; STATE 7478 [sym__ref; sym_lambda; sym_inherited; sym_exprDot;
   sym_exprDeref; sym_exprAs; sym_exprTpl; sym_exprSubscript; sym_exprCall];
   STATE 8019 [sym_exprBinary; sym_exprUnary]; STATE 7478 [sym_exprParens; sym_exprBrackets;
   sym__literal; sym_literalString]; STATE 6664 [sym__literalString; sym_literalChar];
   STATE 7478 [sym_literalNumber]; STATE 7742 [sym__literalInt; sym__literalFloat];
   STATE 1380 [sym__ppIf]; STATE 6327 [sym__ppStatementBlock];
   STATE 11840 [aux_sym_labeledStatement_repeat1]; STATE 863 [aux_sym__statementsTr_repeat1];
   STATE 6664 [aux_sym_literalString_repeat1]; ACTIONS 397 [anon_sym_SEMI];
   ACTIONS 399 [anon_sym_LBRACK]; ACTIONS 401 [anon_sym_LPAREN];
   ACTIONS 403 [aux_sym__literalString_token1]; ACTIONS 405 [anon_sym_POUND];
   ACTIONS 407 [aux_sym__literalInt_token1]; ACTIONS 409 [aux_sym__literalInt_token2;
   aux_sym__literalInt_token3]; ACTIONS 407 [aux_sym__literalFloat_token1];
   ACTIONS 411 [aux_sym_ppUsesBlock_token1]; ACTIONS 413 [sym_kAdd; sym_kSub];
   ACTIONS 415 [sym_kAt]; ACTIONS 417 [sym_kTrue; sym_kFalse]; ACTIONS 419 [sym_labelNumber];
   ACTIONS 3 [sym__space]; ACTIONS 5 [sym_ppDirective]; ACTIONS 3 [sym_comment];
   ACTIONS 417 [sym_ppFragmentExpr]; ACTIONS 397 [sym_ppFragmentStmt];
   ACTIONS 403 [sym__literalStringMultiline]; ACTIONS 421 [sym_identifier];
   ACTIONS 423 [sym_kSpecialize]; ACTIONS 427 [sym_kAsm]; ACTIONS 429 [sym_kBegin];
   ACTIONS 431 [sym_kCase]; ACTIONS 433 [sym_kConst]; ACTIONS 3186 [sym_kEnd];
   ACTIONS 437 [sym_kFor]; ACTIONS 439 [sym_kFunction]; ACTIONS 441 [sym_kGoto];
   ACTIONS 443 [sym_kIf]; ACTIONS 445 [sym_kInherited]; ACTIONS 417 [sym_kNil];
   ACTIONS 415 [sym_kNot]; ACTIONS 439 [sym_kProcedure]; ACTIONS 447 [sym_kRaise];
   ACTIONS 449 [sym_kRepeat]; ACTIONS 451 [sym_kString]; ACTIONS 453 [sym_kTry];
   ACTIONS 455 [sym_kVar]; ACTIONS 457 [sym_kWhile]; ACTIONS 459 [sym_kWith]].

(** State 463. *)
Definition ts_parse_table_463 : parse_row :=
  [STATE 6213 [sym_if]; STATE 6327 [sym_ifElse; sym_while; sym_repeat; sym_for; sym_foreach;
   sym_try; sym_case; sym_block; sym_asm; sym_with; sym_raise; sym_statement; sym_goto;
   sym__statement]; STATE 14606 [sym_ifTr; sym_ifElseTr; sym_whileTr; sym_repeatTr; sym_forTr;
   sym_foreachTr; sym_tryTr; sym_caseTr]; STATE 14251 [sym_blockTr]; STATE 14606 [sym_asmTr;
   sym_withTr; sym_raiseTr; sym_statementTr; sym_gotoTr; sym__statementTr];
   STATE 13915 [sym_assignment]; STATE 11785 [sym_varAssignDef]; STATE 13915 [sym_varDef;
   sym_constDef]; STATE 6166 [sym_label]; STATE 14606 [sym__statementsTr]; STATE 8019 [sym__expr;
   sym_exprConditional]; STATE 7478 [sym__ref; sym_lambda; sym_inherited; sym_exprDot;
   sym_exprDeref; sym_exprAs; sym_exprTpl; sym_exprSubscript; sym_exprCall];
   STATE 8019 [sym_exprBinary; sym_exprUnary]; STATE 7478 [sym_exprParens; sym_exprBrackets;
   sym__literal; sym_literalString]; STATE 6664 [sym__literalString; sym_literalChar];
   STATE 7478 [sym_literalNumber]; STATE 7742 [sym__literalInt; sym__literalFloat];
   STATE 1380 [sym__ppIf]; STATE 6327 [sym__ppStatementBlock];
   STATE 11840 [aux_sym_labeledStatement_repeat1]; STATE 863 [aux_sym__statementsTr_repeat1];
   STATE 6664 [aux_sym_literalString_repeat1]; ACTIONS 397 [anon_sym_SEMI];
   ACTIONS 399 [anon_sym_LBRACK]; ACTIONS 401 [anon_sym_LPAREN];
   ACTIONS 403 [aux_sym__literalString_token1]; ACTIONS 405 [anon_sym_POUND];
   ACTIONS 407 [aux_sym__literalInt_token1]; ACTIONS 409 [aux_sym__literalInt_token2;
   aux_sym__literalInt_token3]; ACTIONS 407 [aux_sym__literalFloat_token1];
   ACTIONS 411 [aux_sym_ppUsesBlock_token1]; ACTIONS 413 [sym_kAdd; sym_kSub];
   ACTIONS 415 [sym_kAt]; ACTIONS 417 [sym_kTrue; sym_kFalse]; ACTIONS 419 [sym_labelNumber];
   ACTIONS 3 [sym__space]; ACTIONS 5 [sym_ppDirective]; ACTIONS 3 [sym_comment];
   ACTIONS 417 [sym_ppFragmentExpr]; ACTIONS 397 [sym_ppFragmentStmt];
   ACTIONS 403 [sym__literalStringMultiline]; ACTIONS 421 [sym_identifier];
   ACTIONS 423 [sym_kSpecialize]; ACTIONS 427 [sym_kAsm]; ACTIONS 429 [sym_kBegin];
   ACTIONS 431 [sym_kCase]; ACTIONS 433 [sym_kConst]; ACTIONS 1721 [sym_kEnd];
   ACTIONS 437 [sym_kFor]; ACTIONS 439 [sym_kFunction]; ACTIONS 441 [sym_kGoto];
   ACTIONS 443 [sym_kIf]; ACTIONS 445 [sym_kInherited]; ACTIONS 417 [sym_kNil];
   ACTIONS 415 [sym_kNot]; ACTIONS 439 [sym_kProcedure]; ACTIONS 447 [sym_kRaise];
   ACTIONS 449 [sym_kRepeat]; ACTIONS 451 [sym_kString]; ACTIONS 453 [sym_kTry];
   ACTIONS 455 [sym_kVar]; ACTIONS 457 [sym_kWhile]; ACTIONS 459 [sym_kWith]].

(** State 464. *)
Definition ts_parse_table_464 : parse_row :=
  [STATE 6213 [sym_if]; STATE 6327 [sym_ifElse; sym_while; sym_repeat; sym_for; sym_foreach;
   sym_try; sym_case; sym_block; sym_asm; sym_with; sym_raise; sym_statement; sym_goto;
   sym__statement]; STATE 14624 [sym_ifTr; sym_ifElseTr; sym_whileTr; sym_repeatTr; sym_forTr;
   sym_foreachTr; sym_tryTr; sym_caseTr]; STATE 14251 [sym_blockTr]; STATE 14624 [sym_asmTr;
   sym_withTr; sym_raiseTr; sym_statementTr; sym_gotoTr; sym__statementTr];
   STATE 13915 [sym_assignment]; STATE 11785 [sym_varAssignDef]; STATE 13915 [sym_varDef;
   sym_constDef]; STATE 6166 [sym_label]; STATE 14624 [sym__statementsTr]; STATE 8019 [sym__expr;
   sym_exprConditional]; STATE 7478 [sym__ref; sym_lambda; sym_inherited; sym_exprDot;
   sym_exprDeref; sym_exprAs; sym_exprTpl; sym_exprSubscript; sym_exprCall];
   STATE 8019 [sym_exprBinary; sym_exprUnary]; STATE 7478 [sym_exprParens; sym_exprBrackets;
   sym__literal; sym_literalString]; STATE 6664 [sym__literalString; sym_literalChar];
   STATE 7478 [sym_literalNumber]; STATE 7742 [sym__literalInt; sym__literalFloat];
   STATE 1380 [sym__ppIf]; STATE 6327 [sym__ppStatementBlock];
   STATE 11840 [aux_sym_labeledStatement_repeat1]; STATE 863 [aux_sym__statementsTr_repeat1];
   STATE 6664 [aux_sym_literalString_repeat1]; ACTIONS 397 [anon_sym_SEMI];
   ACTIONS 399 [anon_sym_LBRACK]; ACTIONS 401 [anon_sym_LPAREN];
   ACTIONS 403 [aux_sym__literalString_token1]; ACTIONS 405 [anon_sym_POUND];
   ACTIONS 407 [aux_sym__literalInt_token1]; ACTIONS 409 [aux_sym__literalInt_token2;
   aux_sym__literalInt_token3]; ACTIONS 407 [aux_sym__literalFloat_token1];
   ACTIONS 411 [aux_sym_ppUsesBlock_token1]; ACTIONS 413 [sym_kAdd; sym_kSub];
   ACTIONS 415 [sym_kAt]; ACTIONS 417 [sym_kTrue; sym_kFalse]; ACTIONS 419 [sym_labelNumber];
   ACTIONS 3 [sym__space]; ACTIONS 5 [sym_ppDirective]; ACTIONS 3 [sym_comment];
   ACTIONS 417 [sym_ppFragmentExpr]; ACTIONS 397 [sym_ppFragmentStmt];
   ACTIONS 403 [sym__literalStringMultiline]; ACTIONS 421 [sym_identifier];
   ACTIONS 423 [sym_kSpecialize]; ACTIONS 427 [sym_kAsm]; ACTIONS 429 [sym_kBegin];
   ACTIONS 431 [sym_kCase]; ACTIONS 433 [sym_kConst]; ACTIONS 1725 [sym_kEnd];
   ACTIONS 437 [sym_kFor]; ACTIONS 439 [sym_kFunction]; ACTIONS 441 [sym_kGoto];
   ACTIONS 443 [sym_kIf]; ACTIONS 445 [sym_kInherited]; ACTIONS 417 [sym_kNil];
   ACTIONS 415 [sym_kNot]; ACTIONS 439 [sym_kProcedure]; ACTIONS 447 [sym_kRaise];
   ACTIONS 449 [sym_kRepeat]; ACTIONS 451 [sym_kString]; ACTIONS 453 [sym_kTry];
   ACTIONS 455 [sym_kVar]; ACTIONS 457 [sym_kWhile]; ACTIONS 459 [sym_kWith]].

(** State 465. *)
Definition ts_parse_table_465 : parse_row :=
  [STATE 6213 [sym_if]; STATE 6327 [sym_ifElse; sym_while; sym_repeat; sym_for; sym_foreach;
   sym_try; sym_case; sym_block; sym_asm; sym_with; sym_raise; sym_statement; sym_goto;
   sym__statement]; STATE 14649 [sym_ifTr; sym_ifElseTr; sym_whileTr; sym_repeatTr; sym_forTr;
   sym_foreachTr; sym_tryTr; sym_caseTr]; STATE 14251 [sym_blockTr]; STATE 14649 [sym_asmTr;
   sym_withTr; sym_raiseTr; sym_statementTr; sym_gotoTr; sym__statementTr];
   STATE 13915 [sym_assignment]; STATE 11785 [sym_varAssignDef]; STATE 13915 [sym_varDef;
   sym_constDef]; STATE 6166 [sym_label]; STATE 14649 [sym__statementsTr]; STATE 8019 [sym__expr;
   sym_exprConditional]; STATE 7478 [sym__ref; sym_lambda; sym_inherited; sym_exprDot;
   sym_exprDeref; sym_exprAs; sym_exprTpl; sym_exprSubscript; sym_exprCall];
   STATE 8019 [sym_exprBinary; sym_exprUnary]; STATE 7478 [sym_exprParens; sym_exprBrackets;
   sym__literal; sym_literalString]; STATE 6664 [sym__literalString; sym_literalChar];
   STATE 7478 [sym_literalNumber]; STATE 7742 [sym__literalInt; sym__literalFloat];
   STATE 1380 [sym__ppIf]; STATE 6327 [sym__ppStatementBlock];
   STATE 11840 [aux_sym_labeledStatement_repeat1]; STATE 863 [aux_sym__statementsTr_repeat1];
   STATE 6664 [aux_sym_literalString_repeat1]; ACTIONS 397 [anon_sym_SEMI];
   ACTIONS 399 [anon_sym_LBRACK]; ACTIONS 401 [anon_sym_LPAREN];
   ACTIONS 403 [aux_sym__literalString_token1]; ACTIONS 405 [anon_sym_POUND];
   ACTIONS 407 [aux_sym__literalInt_token1]; ACTIONS 409 [aux_sym__literalInt_token2;
   aux_sym__literalInt_token3]; ACTIONS 407 [aux_sym__literalFloat_token1];
   ACTIONS 411 [aux_sym_ppUsesBlock_token1]; ACTIONS 413 [sym_kAdd; sym_kSub];
   ACTIONS 415 [sym_kAt]; ACTIONS 417 [sym_kTrue; sym_kFalse]; ACTIONS 419 [sym_labelNumber];
   ACTIONS 3 [sym__space]; ACTIONS 5 [sym_ppDirective]; ACTIONS 3 [sym_comment];
   ACTIONS 417 [sym_ppFragmentExpr]; ACTIONS 397 [sym_ppFragmentStmt];
   ACTIONS 403 [sym__literalStringMultiline]; ACTIONS 421 [sym_identifier];
   ACTIONS 423 [sym_kSpecialize]; ACTIONS 427 [sym_kAsm]; ACTIONS 429 [sym_kBegin];
   ACTIONS 431 [sym_kCase]; ACTIONS 433 [sym_kConst]; ACTIONS 3188 [sym_kEnd];
   ACTIONS 437 [sym_kFor]; ACTIONS 439 [sym_kFunction]; ACTIONS 441 [sym_kGoto];
   ACTIONS 443 [sym_kIf]; ACTIONS 445 [sym_kInherited]; ACTIONS 417 [sym_kNil];
   ACTIONS 415 [sym_kNot]; ACTIONS 439 [sym_kProcedure]; ACTIONS 447 [sym_kRaise];
   ACTIONS 449 [sym_kRepeat]; ACTIONS 451 [sym_kString]; ACTIONS 453 [sym_kTry];
   ACTIONS 455 [sym_kVar]; ACTIONS 457 [sym_kWhile]; ACTIONS 459 [sym_kWith]].

(** State 466. *)
Definition ts_parse_table_466 : parse_row :=
  [STATE 6213 [sym_if]; STATE 6327 [sym_ifElse; sym_while; sym_repeat; sym_for; sym_foreach;
   sym_try; sym_case; sym_block; sym_asm; sym_with; sym_raise; sym_statement; sym_goto;
   sym__statement]; STATE 14786 [sym_ifTr; sym_ifElseTr; sym_whileTr; sym_repeatTr; sym_forTr;
   sym_foreachTr; sym_tryTr; sym_caseTr]; STATE 14251 [sym_blockTr]; STATE 14786 [sym_asmTr;
   sym_withTr; sym_raiseTr; sym_statementTr; sym_gotoTr; sym__statementTr];
   STATE 13915 [sym_assignment]; STATE 11785 [sym_varAssignDef]; STATE 13915 [sym_varDef;
   sym_constDef]; STATE 6166 [sym_label]; STATE 14786 [sym__statementsTr]; STATE 8019 [sym__expr;
   sym_exprConditional]; STATE 7478 [sym__ref; sym_lambda; sym_inherited; sym_exprDot;
   sym_exprDeref; sym_exprAs; sym_exprTpl; sym_exprSubscript; sym_exprCall];
   STATE 8019 [sym_exprBinary; sym_exprUnary]; STATE 7478 [sym_exprParens; sym_exprBrackets;
   sym__literal; sym_literalString]; STATE 6664 [sym__literalString; sym_literalChar];
   STATE 7478 [sym_literalNumber]; STATE 7742 [sym__literalInt; sym__literalFloat];
   STATE 1380 [sym__ppIf]; STATE 6327 [sym__ppStatementBlock];
   STATE 11840 [aux_sym_labeledStatement_repeat1]; STATE 863 [aux_sym__statementsTr_repeat1];
   STATE 6664 [aux_sym_literalString_repeat1]; ACTIONS 397 [anon_sym_SEMI];
   ACTIONS 399 [anon_sym_LBRACK]; ACTIONS 401 [anon_sym_LPAREN];
   ACTIONS 403 [aux_sym__literalString_token1]; ACTIONS 405 [anon_sym_POUND];
   ACTIONS 407 [aux_sym__literalInt_token1]; ACTIONS 409 [aux_sym__literalInt_token2;
   aux_sym__literalInt_token3]; ACTIONS 407 [aux_sym__literalFloat_token1];
   ACTIONS 411 [aux_sym_ppUsesBlock_token1]; ACTIONS 413 [sym_kAdd; sym_kSub];
   ACTIONS 415 [sym_kAt]; ACTIONS 417 [sym_kTrue; sym_kFalse]; ACTIONS 419 [sym_labelNumber];
   ACTIONS 3 [sym__space]; ACTIONS 5 [sym_ppDirective]; ACTIONS 3 [sym_comment];
   ACTIONS 417 [sym_ppFragmentExpr]; ACTIONS 397 [sym_ppFragmentStmt];
   ACTIONS 403 [sym__literalStringMultiline]; ACTIONS 421 [sym_identifier];
   ACTIONS 423 [sym_kSpecialize]; ACTIONS 427 [sym_kAsm]; ACTIONS 429 [sym_kBegin];
   ACTIONS 431 [sym_kCase]; ACTIONS 433 [sym_kConst]; ACTIONS 3190 [sym_kEnd];
   ACTIONS 437 [sym_kFor]; ACTIONS 439 [sym_kFunction]; ACTIONS 441 [sym_kGoto];
   ACTIONS 443 [sym_kIf]; ACTIONS 445 [sym_kInherited]; ACTIONS 417 [sym_kNil];
   ACTIONS 415 [sym_kNot]; ACTIONS 439 [sym_kProcedure]; ACTIONS 447 [sym_kRaise];
   ACTIONS 449 [sym_kRepeat]; ACTIONS 451 [sym_kString]; ACTIONS 453 [sym_kTry];
   ACTIONS 455 [sym_kVar]; ACTIONS 457 [sym_kWhile]; ACTIONS 459 [sym_kWith]].

(** State 467. *)
Definition ts_parse_table_467 : parse_row :=
  [STATE 6213 [sym_if]; STATE 6327 [sym_ifElse; sym_while; sym_repeat; sym_for; sym_foreach;
   sym_try; sym_case; sym_block; sym_asm; sym_with; sym_raise; sym_statement; sym_goto;
   sym__statement]; STATE 14800 [sym_ifTr; sym_ifElseTr; sym_whileTr; sym_repeatTr; sym_forTr;
   sym_foreachTr; sym_tryTr; sym_caseTr]; STATE 14251 [sym_blockTr]; STATE 14800 [sym_asmTr;
   sym_withTr; sym_raiseTr; sym_statementTr; sym_gotoTr; sym__statementTr];
   STATE 13915 [sym_assignment]; STATE 11785 [sym_varAssignDef]; STATE 13915 [sym_varDef;
   sym_constDef]; STATE 6166 [sym_label]; STATE 14800 [sym__statementsTr]; STATE 8019 [sym__expr;
   sym_exprConditional]; STATE 7478 [sym__ref; sym_lambda; sym_inherited; sym_exprDot;
   sym_exprDeref; sym_exprAs; sym_exprTpl; sym_exprSubscript; sym_exprCall];
   STATE 8019 [sym_exprBinary; sym_exprUnary]; STATE 7478 [sym_exprParens; sym_exprBrackets;
   sym__literal; sym_literalString]; STATE 6664 [sym__literalString; sym_literalChar];
   STATE 7478 [sym_literalNumber]; STATE 7742 [sym__literalInt; sym__literalFloat];
   STATE 1380 [sym__ppIf]; STATE 6327 [sym__ppStatementBlock];
   STATE 11840 [aux_sym_labeledStatement_repeat1]; STATE 863 [aux_sym__statementsTr_repeat1];
   STATE 6664 [aux_sym_literalString_repeat1]; ACTIONS 397 [anon_sym_SEMI];
   ACTIONS 399 [anon_sym_LBRACK]; ACTIONS 401 [anon_sym_LPAREN];
   ACTIONS 403 [aux_sym__literalString_token1]; ACTIONS 405 [anon_sym_POUND];
   ACTIONS 407 [aux_sym__literalInt_token1]; ACTIONS 409 [aux_sym__literalInt_token2;
   aux_sym__literalInt_token3]; ACTIONS 407 [aux_sym__literalFloat_token1];
   ACTIONS 411 [aux_sym_ppUsesBlock_token1]; ACTIONS 413 [sym_kAdd; sym_kSub];
   ACTIONS 415 [sym_kAt]; ACTIONS 417 [sym_kTrue; sym_kFalse]; ACTIONS 419 [sym_labelNumber];
   ACTIONS 3 [sym__space]; ACTIONS 5 [sym_ppDirective]; ACTIONS 3 [sym_comment];
   ACTIONS 417 [sym_ppFragmentExpr]; ACTIONS 397 [sym_ppFragmentStmt];
   ACTIONS 403 [sym__literalStringMultiline]; ACTIONS 421 [sym_identifier];
   ACTIONS 423 [sym_kSpecialize]; ACTIONS 427 [sym_kAsm]; ACTIONS 429 [sym_kBegin];
   ACTIONS 431 [sym_kCase]; ACTIONS 433 [sym_kConst]; ACTIONS 3192 [sym_kEnd];
   ACTIONS 437 [sym_kFor]; ACTIONS 439 [sym_kFunction]; ACTIONS 441 [sym_kGoto];
   ACTIONS 443 [sym_kIf]; ACTIONS 445 [sym_kInherited]; ACTIONS 417 [sym_kNil];
   ACTIONS 415 [sym_kNot]; ACTIONS 439 [sym_kProcedure]; ACTIONS 447 [sym_kRaise];
   ACTIONS 449 [sym_kRepeat]; ACTIONS 451 [sym_kString]; ACTIONS 453 [sym_kTry];
   ACTIONS 455 [sym_kVar]; ACTIONS 457 [sym_kWhile]; ACTIONS 459 [sym_kWith]].

(** State 468. *)
Definition ts_parse_table_468 : parse_row :=
  [STATE 5622 [sym_if]; STATE 5725 [sym_ifElse; sym_while; sym_repeat; sym_for; sym_foreach;
   sym_try; sym_case; sym_block; sym_asm; sym_with; sym_raise; sym_statement; sym_goto;
   sym_labeledStatement; sym__statement]; STATE 11622 [sym_ifTr; sym_ifElseTr; sym_whileTr;
   sym_repeatTr; sym_forTr; sym_foreachTr; sym_tryTr; sym_caseTr]; STATE 11564 [sym_blockTr];
   STATE 11622 [sym_asmTr; sym_withTr; sym_raiseTr; sym_statementTr; sym_gotoTr;
   sym_labeledStatementTr; sym__statementTr]; STATE 11443 [sym_assignment];
   STATE 11931 [sym_varAssignDef]; STATE 11443 [sym_varDef; sym_constDef]; STATE 703 [sym_label];
   STATE 7199 [sym__expr; sym_exprConditional]; STATE 6884 [sym__ref; sym_lambda; sym_inherited;
   sym_exprDot; sym_exprDeref; sym_exprAs; sym_exprTpl; sym_exprSubscript; sym_exprCall];
   STATE 7199 [sym_exprBinary; sym_exprUnary]; STATE 6884 [sym_exprParens; sym_exprBrackets;
   sym__literal; sym_literalString]; STATE 5959 [sym__literalString; sym_literalChar];
   STATE 6884 [sym_literalNumber]; STATE 6992 [sym__literalInt; sym__literalFloat];
   STATE 5959 [aux_sym_literalString_repeat1]; ACTIONS 3194 [anon_sym_SEMI];
   ACTIONS 3196 [anon_sym_LBRACK]; ACTIONS 3198 [anon_sym_LPAREN];
   ACTIONS 3200 [aux_sym__literalString_token1]; ACTIONS 3202 [anon_sym_POUND];
   ACTIONS 3204 [aux_sym__literalInt_token1]; ACTIONS 3206 [aux_sym__literalInt_token2;
   aux_sym__literalInt_token3]; ACTIONS 3204 [aux_sym__literalFloat_token1];
   ACTIONS 3208 [sym_kAdd; sym_kSub]; ACTIONS 3210 [sym_kAt]; ACTIONS 3212 [sym_kTrue;
   sym_kFalse]; ACTIONS 3214 [sym_labelNumber]; ACTIONS 3 [sym__space];
   ACTIONS 5 [sym_ppDirective]; ACTIONS 3 [sym_comment]; ACTIONS 3212 [sym_ppFragmentExpr];
   ACTIONS 3200 [sym__literalStringMultiline]; ACTIONS 3216 [sym_identifier];
   ACTIONS 3218 [sym_kSpecialize]; ACTIONS 3220 [sym_kAsm]; ACTIONS 3222 [sym_kBegin];
   ACTIONS 3224 [sym_kCase]; ACTIONS 3226 [sym_kConst]; ACTIONS 3228 [sym_kElse];
   ACTIONS 3230 [sym_kEnd; sym_kFinalization]; ACTIONS 3232 [sym_kFor];
   ACTIONS 3234 [sym_kFunction]; ACTIONS 3236 [sym_kGoto]; ACTIONS 3238 [sym_kIf];
   ACTIONS 3230 [sym_kImplementation]; ACTIONS 3240 [sym_kInherited];
   ACTIONS 3230 [sym_kInitialization; sym_kInterface]; ACTIONS 3212 [sym_kNil];
   ACTIONS 3210 [sym_kNot]; ACTIONS 3234 [sym_kProcedure]; ACTIONS 3242 [sym_kRaise];
   ACTIONS 3244 [sym_kRepeat]; ACTIONS 3246 [sym_kString]; ACTIONS 3248 [sym_kTry];
   ACTIONS 3250 [sym_kVar]; ACTIONS 3252 [sym_kWhile]; ACTIONS 3254 [sym_kWith]].

(** State 469. *)
Definition ts_parse_table_469 : parse_row :=
  [STATE 6213 [sym_if]; STATE 6327 [sym_ifElse; sym_while; sym_repeat; sym_for; sym_foreach;
   sym_try; sym_case; sym_block; sym_asm; sym_with; sym_raise; sym_statement; sym_goto;
   sym__statement]; STATE 15036 [sym_ifTr; sym_ifElseTr; sym_whileTr; sym_repeatTr; sym_forTr;
   sym_foreachTr; sym_tryTr; sym_caseTr]; STATE 14251 [sym_blockTr]; STATE 15036 [sym_asmTr;
   sym_withTr; sym_raiseTr; sym_statementTr; sym_gotoTr; sym__statementTr];
   STATE 13915 [sym_assignment]; STATE 11785 [sym_varAssignDef]; STATE 13915 [sym_varDef;
   sym_constDef]; STATE 6166 [sym_label]; STATE 15036 [sym__statementsTr]; STATE 8019 [sym__expr;
   sym_exprConditional]; STATE 7478 [sym__ref; sym_lambda; sym_inherited; sym_exprDot;
   sym_exprDeref; sym_exprAs; sym_exprTpl; sym_exprSubscript; sym_exprCall];
   STATE 8019 [sym_exprBinary; sym_exprUnary]; STATE 7478 [sym_exprParens; sym_exprBrackets;
   sym__literal; sym_literalString]; STATE 6664 [sym__literalString; sym_literalChar];
   STATE 7478 [sym_literalNumber]; STATE 7742 [sym__literalInt; sym__literalFloat];
   STATE 1380 [sym__ppIf]; STATE 6327 [sym__ppStatementBlock];
   STATE 11840 [aux_sym_labeledStatement_repeat1]; STATE 863 [aux_sym__statementsTr_repeat1];
   STATE 6664 [aux_sym_literalString_repeat1]; ACTIONS 397 [anon_sym_SEMI];
   ACTIONS 399 [anon_sym_LBRACK]; ACTIONS 401 [anon_sym_LPAREN];
   ACTIONS 403 [aux_sym__literalString_token1]; ACTIONS 405 [anon_sym_POUND];
   ACTIONS 407 [aux_sym__literalInt_token1]; ACTIONS 409 [aux_sym__literalInt_token2;
   aux_sym__literalInt_token3]; ACTIONS 407 [aux_sym__literalFloat_token1];
   ACTIONS 411 [aux_sym_ppUsesBlock_token1]; ACTIONS 413 [sym_kAdd; sym_kSub];
   ACTIONS 415 [sym_kAt]; ACTIONS 417 [sym_kTrue; sym_kFalse]; ACTIONS 419 [sym_labelNumber];
   ACTIONS 3 [sym__space]; ACTIONS 5 [sym_ppDirective]; ACTIONS 3 [sym_comment];
   ACTIONS 417 [sym_ppFragmentExpr]; ACTIONS 397 [sym_ppFragmentStmt];
   ACTIONS 403 [sym__literalStringMultiline]; ACTIONS 421 [sym_identifier];
   ACTIONS 423 [sym_kSpecialize]; ACTIONS 427 [sym_kAsm]; ACTIONS 429 [sym_kBegin];
   ACTIONS 431 [sym_kCase]; ACTIONS 433 [sym_kConst]; ACTIONS 1830 [sym_kEnd];
   ACTIONS 437 [sym_kFor]; ACTIONS 439 [sym_kFunction]; ACTIONS 441 [sym_kGoto];
   ACTIONS 443 [sym_kIf]; ACTIONS 445 [sym_kInherited]; ACTIONS 417 [sym_kNil];
   ACTIONS 415 [sym_kNot]; ACTIONS 439 [sym_kProcedure]; ACTIONS 447 [sym_kRaise];
   ACTIONS 449 [sym_kRepeat]; ACTIONS 451 [sym_kString]; ACTIONS 453 [sym_kTry];
   ACTIONS 455 [sym_kVar]; ACTIONS 457 [sym_kWhile]; ACTIONS 459 [sym_kWith]].

(** State 470. *)
Definition ts_parse_table_470 : parse_row :=
  [STATE 6213 [sym_if]; STATE 6327 [sym_ifElse; sym_while; sym_repeat; sym_for; sym_foreach;
   sym_try; sym_case; sym_block; sym_asm; sym_with; sym_raise; sym_statement; sym_goto;
   sym__statement]; STATE 15041 [sym_ifTr; sym_ifElseTr; sym_whileTr; sym_repeatTr; sym_forTr;
   sym_foreachTr; sym_tryTr; sym_caseTr]; STATE 14251 [sym_blockTr]; STATE 15041 [sym_asmTr;
   sym_withTr; sym_raiseTr; sym_statementTr; sym_gotoTr; sym__statementTr];
   STATE 13915 [sym_assignment]; STATE 11785 [sym_varAssignDef]; STATE 13915 [sym_varDef;
   sym_constDef]; STATE 6166 [sym_label]; STATE 15041 [sym__statementsTr]; STATE 8019 [sym__expr;
   sym_exprConditional]; STATE 7478 [sym__ref; sym_lambda; sym_inherited; sym_exprDot;
   sym_exprDeref; sym_exprAs; sym_exprTpl; sym_exprSubscript; sym_exprCall];
   STATE 8019 [sym_exprBinary; sym_exprUnary]; STATE 7478 [sym_exprParens; sym_exprBrackets;
   sym__literal; sym_literalString]; STATE 6664 [sym__literalString; sym_literalChar];
   STATE 7478 [sym_literalNumber]; STATE 7742 [sym__literalInt; sym__literalFloat];
   STATE 1380 [sym__ppIf]; STATE 6327 [sym__ppStatementBlock];
   STATE 11840 [aux_sym_labeledStatement_repeat1]; STATE 863 [aux_sym__statementsTr_repeat1];
   STATE 6664 [aux_sym_literalString_repeat1]; ACTIONS 397 [anon_sym_SEMI];
   ACTIONS 399 [anon_sym_LBRACK]; ACTIONS 401 [anon_sym_LPAREN];
   ACTIONS 403 [aux_sym__literalString_token1]; ACTIONS 405 [anon_sym_POUND];
   ACTIONS 407 [aux_sym__literalInt_token1]; ACTIONS 409 [aux_sym__literalInt_token2;
   aux_sym__literalInt_token3]; ACTIONS 407 [aux_sym__literalFloat_token1];
   ACTIONS 411 [aux_sym_ppUsesBlock_token1]; ACTIONS 413 [sym_kAdd; sym_kSub];
   ACTIONS 415 [sym_kAt]; ACTIONS 417 [sym_kTrue; sym_kFalse]; ACTIONS 419 [sym_labelNumber];
   ACTIONS 3 [sym__space]; ACTIONS 5 [sym_ppDirective]; ACTIONS 3 [sym_comment];
   ACTIONS 417 [sym_ppFragmentExpr]; ACTIONS 397 [sym_ppFragmentStmt];
   ACTIONS 403 [sym__literalStringMultiline]; ACTIONS 421 [sym_identifier];
   ACTIONS 423 [sym_kSpecialize]; ACTIONS 427 [sym_kAsm]; ACTIONS 429 [sym_kBegin];
   ACTIONS 431 [sym_kCase]; ACTIONS 433 [sym_kConst]; ACTIONS 1834 [sym_kEnd];
   ACTIONS 437 [sym_kFor]; ACTIONS 439 [sym_kFunction]; ACTIONS 441 [sym_kGoto];
   ACTIONS 443 [sym_kIf]; ACTIONS 445 [sym_kInherited]; ACTIONS 417 [sym_kNil];
   ACTIONS 415 [sym_kNot]; ACTIONS 439 [sym_kProcedure]; ACTIONS 447 [sym_kRaise];
   ACTIONS 449 [sym_kRepeat]; ACTIONS 451 [sym_kString]; ACTIONS 453 [sym_kTry];
   ACTIONS 455 [sym_kVar]; ACTIONS 457 [sym_kWhile]; ACTIONS 459 [sym_kWith]].

(** State 471. *)
Definition ts_parse_table_471 : parse_row :=
  [STATE 6213 [sym_if]; STATE 6327 [sym_ifElse; sym_while; sym_repeat; sym_for; sym_foreach;
   sym_try; sym_case; sym_block; sym_asm; sym_with; sym_raise; sym_statement; sym_goto;
   sym__statement]; STATE 15056 [sym_ifTr; sym_ifElseTr; sym_whileTr; sym_repeatTr; sym_forTr;
   sym_foreachTr; sym_tryTr; sym_caseTr]; STATE 14251 [sym_blockTr]; STATE 15056 [sym_asmTr;
   sym_withTr; sym_raiseTr; sym_statementTr; sym_gotoTr; sym__statementTr];
   STATE 13915 [sym_assignment]; STATE 11785 [sym_varAssignDef]; STATE 13915 [sym_varDef;
   sym_constDef]; STATE 6166 [sym_label]; STATE 15056 [sym__statementsTr]; STATE 8019 [sym__expr;
   sym_exprConditional]; STATE 7478 [sym__ref; sym_lambda; sym_inherited; sym_exprDot;
   sym_exprDeref; sym_exprAs; sym_exprTpl; sym_exprSubscript; sym_exprCall];
   STATE 8019 [sym_exprBinary; sym_exprUnary]; STATE 7478 [sym_exprParens; sym_exprBrackets;
   sym__literal; sym_literalString]; STATE 6664 [sym__literalString; sym_literalChar];
   STATE 7478 [sym_literalNumber]; STATE 7742 [sym__literalInt; sym__literalFloat];
   STATE 1380 [sym__ppIf]; STATE 6327 [sym__ppStatementBlock];
   STATE 11840 [aux_sym_labeledStatement_repeat1]; STATE 863 [aux_sym__statementsTr_repeat1];
   STATE 6664 [aux_sym_literalString_repeat1]; ACTIONS 397 [anon_sym_SEMI];
   ACTIONS 399 [anon_sym_LBRACK]; ACTIONS 401 [anon_sym_LPAREN];
   ACTIONS 403 [aux_sym__literalString_token1]; ACTIONS 405 [anon_sym_POUND];
   ACTIONS 407 [aux_sym__literalInt_token1]; ACTIONS 409 [aux_sym__literalInt_token2;
   aux_sym__literalInt_token3]; ACTIONS 407 [aux_sym__literalFloat_token1];
   ACTIONS 411 [aux_sym_ppUsesBlock_token1]; ACTIONS 413 [sym_kAdd; sym_kSub];
   ACTIONS 415 [sym_kAt]; ACTIONS 417 [sym_kTrue; sym_kFalse]; ACTIONS 419 [sym_labelNumber];
   ACTIONS 3 [sym__space]; ACTIONS 5 [sym_ppDirective]; ACTIONS 3 [sym_comment];
   ACTIONS 417 [sym_ppFragmentExpr]; ACTIONS 397 [sym_ppFragmentStmt];
   ACTIONS 403 [sym__literalStringMultiline]; ACTIONS 421 [sym_identifier];
   ACTIONS 423 [sym_kSpecialize]; ACTIONS 427 [sym_kAsm]; ACTIONS 429 [sym_kBegin];
   ACTIONS 431 [sym_kCase]; ACTIONS 433 [sym_kConst]; ACTIONS 3256 [sym_kEnd];
   ACTIONS 437 [sym_kFor]; ACTIONS 439 [sym_kFunction]; ACTIONS 441 [sym_kGoto];
   ACTIONS 443 [sym_kIf]; ACTIONS 445 [sym_kInherited]; ACTIONS 417 [sym_kNil];
   ACTIONS 415 [sym_kNot]; ACTIONS 439 [sym_kProcedure]; ACTIONS 447 [sym_kRaise];
   ACTIONS 449 [sym_kRepeat]; ACTIONS 451 [sym_kString]; ACTIONS 453 [sym_kTry];
   ACTIONS 455 [sym_kVar]; ACTIONS 457 [sym_kWhile]; ACTIONS 459 [sym_kWith]].

(** State 472. *)
Definition ts_parse_table_472 : parse_row :=
  [STATE 6213 [sym_if]; STATE 6327 [sym_ifElse; sym_while; sym_repeat; sym_for; sym_foreach;
   sym_try; sym_case; sym_block; sym_asm; sym_with; sym_raise; sym_statement; sym_goto;
   sym__statement]; STATE 15126 [sym_ifTr; sym_ifElseTr; sym_whileTr; sym_repeatTr; sym_forTr;
   sym_foreachTr; sym_tryTr; sym_caseTr]; STATE 14251 [sym_blockTr]; STATE 15126 [sym_asmTr;
   sym_withTr; sym_raiseTr; sym_statementTr; sym_gotoTr; sym__statementTr];
   STATE 13915 [sym_assignment]; STATE 11785 [sym_varAssignDef]; STATE 13915 [sym_varDef;
   sym_constDef]; STATE 6166 [sym_label]; STATE 15126 [sym__statementsTr]; STATE 8019 [sym__expr;
   sym_exprConditional]; STATE 7478 [sym__ref; sym_lambda; sym_inherited; sym_exprDot;
   sym_exprDeref; sym_exprAs; sym_exprTpl; sym_exprSubscript; sym_exprCall];
   STATE 8019 [sym_exprBinary; sym_exprUnary]; STATE 7478 [sym_exprParens; sym_exprBrackets;
   sym__literal; sym_literalString]; STATE 6664 [sym__literalString; sym_literalChar];
   STATE 7478 [sym_literalNumber]; STATE 7742 [sym__literalInt; sym__literalFloat];
   STATE 1380 [sym__ppIf]; STATE 6327 [sym__ppStatementBlock];
   STATE 11840 [aux_sym_labeledStatement_repeat1]; STATE 863 [aux_sym__statementsTr_repeat1];
   STATE 6664 [aux_sym_literalString_repeat1]; ACTIONS 397 [anon_sym_SEMI];
   ACTIONS 399 [anon_sym_LBRACK]; ACTIONS 401 [anon_sym_LPAREN];
   ACTIONS 403 [aux_sym__literalString_token1]; ACTIONS 405 [anon_sym_POUND];
   ACTIONS 407 [aux_sym__literalInt_token1]; ACTIONS 409 [aux_sym__literalInt_token2;
   aux_sym__literalInt_token3]; ACTIONS 407 [aux_sym__literalFloat_token1];
   ACTIONS 411 [aux_sym_ppUsesBlock_token1]; ACTIONS 413 [sym_kAdd; sym_kSub];
   ACTIONS 415 [sym_kAt]; ACTIONS 417 [sym_kTrue; sym_kFalse]; ACTIONS 419 [sym_labelNumber];
   ACTIONS 3 [sym__space]; ACTIONS 5 [sym_ppDirective]; ACTIONS 3 [sym_comment];
   ACTIONS 417 [sym_ppFragmentExpr]; ACTIONS 397 [sym_ppFragmentStmt];
   ACTIONS 403 [sym__literalStringMultiline]; ACTIONS 421 [sym_identifier];
   ACTIONS 423 [sym_kSpecialize]; ACTIONS 427 [sym_kAsm]; ACTIONS 429 [sym_kBegin];
   ACTIONS 431 [sym_kCase]; ACTIONS 433 [sym_kConst]; ACTIONS 3258 [sym_kEnd];
   ACTIONS 437 [sym_kFor]; ACTIONS 439 [sym_kFunction]; ACTIONS 441 [sym_kGoto];
   ACTIONS 443 [sym_kIf]; ACTIONS 445 [sym_kInherited]; ACTIONS 417 [sym_kNil];
   ACTIONS 415 [sym_kNot]; ACTIONS 439 [sym_kProcedure]; ACTIONS 447 [sym_kRaise];
   ACTIONS 449 [sym_kRepeat]; ACTIONS 451 [sym_kString]; ACTIONS 453 [sym_kTry];
   ACTIONS 455 [sym_kVar]; ACTIONS 457 [sym_kWhile]; ACTIONS 459 [sym_kWith]].

(** State 473. *)
Definition ts_parse_table_473 : parse_row :=
  [STATE 6213 [sym_if]; STATE 6327 [sym_ifElse; sym_while; sym_repeat; sym_for; sym_foreach;
   sym_try; sym_case; sym_block; sym_asm; sym_with; sym_raise; sym_statement; sym_goto;
   sym__statement]; STATE 15145 [sym_ifTr; sym_ifElseTr; sym_whileTr; sym_repeatTr; sym_forTr;
   sym_foreachTr; sym_tryTr; sym_caseTr]; STATE 14251 [sym_blockTr]; STATE 15145 [sym_asmTr;
   sym_withTr; sym_raiseTr; sym_statementTr; sym_gotoTr; sym__statementTr];
   STATE 13915 [sym_assignment]; STATE 11785 [sym_varAssignDef]; STATE 13915 [sym_varDef;
   sym_constDef]; STATE 6166 [sym_label]; STATE 15145 [sym__statementsTr]; STATE 8019 [sym__expr;
   sym_exprConditional]; STATE 7478 [sym__ref; sym_lambda; sym_inherited; sym_exprDot;
   sym_exprDeref; sym_exprAs; sym_exprTpl; sym_exprSubscript; sym_exprCall];
   STATE 8019 [sym_exprBinary; sym_exprUnary]; STATE 7478 [sym_exprParens; sym_exprBrackets;
   sym__literal; sym_literalString]; STATE 6664 [sym__literalString; sym_literalChar];
   STATE 7478 [sym_literalNumber]; STATE 7742 [sym__literalInt; sym__literalFloat];
   STATE 1380 [sym__ppIf]; STATE 6327 [sym__ppStatementBlock];
   STATE 11840 [aux_sym_labeledStatement_repeat1]; STATE 863 [aux_sym__statementsTr_repeat1];
   STATE 6664 [aux_sym_literalString_repeat1]; ACTIONS 397 [anon_sym_SEMI];
   ACTIONS 399 [anon_sym_LBRACK]; ACTIONS 401 [anon_sym_LPAREN];
   ACTIONS 403 [aux_sym__literalString_token1]; ACTIONS 405 [anon_sym_POUND];
   ACTIONS 407 [aux_sym__literalInt_token1]; ACTIONS 409 [aux_sym__literalInt_token2;
   aux_sym__literalInt_token3]; ACTIONS 407 [aux_sym__literalFloat_token1];
   ACTIONS 411 [aux_sym_ppUsesBlock_token1]; ACTIONS 413 [sym_kAdd; sym_kSub];
   ACTIONS 415 [sym_kAt]; ACTIONS 417 [sym_kTrue; sym_kFalse]; ACTIONS 419 [sym_labelNumber];
   ACTIONS 3 [sym__space]; ACTIONS 5 [sym_ppDirective]; ACTIONS 3 [sym_comment];
   ACTIONS 417 [sym_ppFragmentExpr]; ACTIONS 397 [sym_ppFragmentStmt];
   ACTIONS 403 [sym__literalStringMultiline]; ACTIONS 421 [sym_identifier];
   ACTIONS 423 [sym_kSpecialize]; ACTIONS 427 [sym_kAsm]; ACTIONS 429 [sym_kBegin];
   ACTIONS 431 [sym_kCase]; ACTIONS 433 [sym_kConst]; ACTIONS 3260 [sym_kEnd];
   ACTIONS 437 [sym_kFor]; ACTIONS 439 [sym_kFunction]; ACTIONS 441 [sym_kGoto];
   ACTIONS 443 [sym_kIf]; ACTIONS 445 [sym_kInherited]; ACTIONS 417 [sym_kNil];
   ACTIONS 415 [sym_kNot]; ACTIONS 439 [sym_kProcedure]; ACTIONS 447 [sym_kRaise];
   ACTIONS 449 [sym_kRepeat]; ACTIONS 451 [sym_kString]; ACTIONS 453 [sym_kTry];
   ACTIONS 455 [sym_kVar]; ACTIONS 457 [sym_kWhile]; ACTIONS 459 [sym_kWith]].

(** State 474. *)
Definition ts_parse_table_474 : parse_row :=
  [STATE 6213 [sym_if]; STATE 6327 [sym_ifElse; sym_while; sym_repeat; sym_for; sym_foreach;
   sym_try; sym_case; sym_block; sym_asm; sym_with; sym_raise; sym_statement; sym_goto;
   sym__statement]; STATE 15437 [sym_ifTr; sym_ifElseTr; sym_whileTr; sym_repeatTr; sym_forTr;
   sym_foreachTr; sym_tryTr; sym_caseTr]; STATE 14251 [sym_blockTr]; STATE 15437 [sym_asmTr;
   sym_withTr; sym_raiseTr; sym_statementTr; sym_gotoTr; sym__statementTr];
   STATE 13915 [sym_assignment]; STATE 11785 [sym_varAssignDef]; STATE 13915 [sym_varDef;
   sym_constDef]; STATE 6166 [sym_label]; STATE 15437 [sym__statementsTr]; STATE 8019 [sym__expr;
   sym_exprConditional]; STATE 7478 [sym__ref; sym_lambda; sym_inherited; sym_exprDot;
   sym_exprDeref; sym_exprAs; sym_exprTpl; sym_exprSubscript; sym_exprCall];
   STATE 8019 [sym_exprBinary; sym_exprUnary]; STATE 7478 [sym_exprParens; sym_exprBrackets;
   sym__literal; sym_literalString]; STATE 6664 [sym__literalString; sym_literalChar];
   STATE 7478 [sym_literalNumber]; STATE 7742 [sym__literalInt; sym__literalFloat];
   STATE 1380 [sym__ppIf]; STATE 6327 [sym__ppStatementBlock];
   STATE 11840 [aux_sym_labeledStatement_repeat1]; STATE 863 [aux_sym__statementsTr_repeat1];
   STATE 6664 [aux_sym_literalString_repeat1]; ACTIONS 397 [anon_sym_SEMI];
   ACTIONS 399 [anon_sym_LBRACK]; ACTIONS 401 [anon_sym_LPAREN];
   ACTIONS 403 [aux_sym__literalString_token1]; ACTIONS 405 [anon_sym_POUND];
   ACTIONS 407 [aux_sym__literalInt_token1]; ACTIONS 409 [aux_sym__literalInt_token2;
   aux_sym__literalInt_token3]; ACTIONS 407 [aux_sym__literalFloat_token1];
   ACTIONS 411 [aux_sym_ppUsesBlock_token1]; ACTIONS 413 [sym_kAdd; sym_kSub];
   ACTIONS 415 [sym_kAt]; ACTIONS 417 [sym_kTrue; sym_kFalse]; ACTIONS 419 [sym_labelNumber];
   ACTIONS 3 [sym__space]; ACTIONS 5 [sym_ppDirective]; ACTIONS 3 [sym_comment];
   ACTIONS 417 [sym_ppFragmentExpr]; ACTIONS 397 [sym_ppFragmentStmt];
   ACTIONS 403 [sym__literalStringMultiline]; ACTIONS 421 [sym_identifier];
   ACTIONS 423 [sym_kSpecialize]; ACTIONS 427 [sym_kAsm]; ACTIONS 429 [sym_kBegin];
   ACTIONS 431 [sym_kCase]; ACTIONS 433 [sym_kConst]; ACTIONS 1877 [sym_kEnd];
   ACTIONS 437 [sym_kFor]; ACTIONS 439 [sym_kFunction]; ACTIONS 441 [sym_kGoto];
   ACTIONS 443 [sym_kIf]; ACTIONS 445 [sym_kInherited]; ACTIONS 417 [sym_kNil];
   ACTIONS 415 [sym_kNot]; ACTIONS 439 [sym_kProcedure]; ACTIONS 447 [sym_kRaise];
   ACTIONS 449 [sym_kRepeat]; ACTIONS 451 [sym_kString]; ACTIONS 453 [sym_kTry];
   ACTIONS 455 [sym_kVar]; ACTIONS 457 [sym_kWhile]; ACTIONS 459 [sym_kWith]].

(** State 475. *)
Definition ts_parse_table_475 : parse_row :=
  [STATE 6213 [sym_if]; STATE 6327 [sym_ifElse; sym_while; sym_repeat; sym_for; sym_foreach;
   sym_try; sym_case; sym_block; sym_asm; sym_with; sym_raise; sym_statement; sym_goto;
   sym__statement]; STATE 15441 [sym_ifTr; sym_ifElseTr; sym_whileTr; sym_repeatTr; sym_forTr;
   sym_foreachTr; sym_tryTr; sym_caseTr]; STATE 14251 [sym_blockTr]; STATE 15441 [sym_asmTr;
   sym_withTr; sym_raiseTr; sym_statementTr; sym_gotoTr; sym__statementTr];
   STATE 13915 [sym_assignment]; STATE 11785 [sym_varAssignDef]; STATE 13915 [sym_varDef;
   sym_constDef]; STATE 6166 [sym_label]; STATE 15441 [sym__statementsTr]; STATE 8019 [sym__expr;
   sym_exprConditional]; STATE 7478 [sym__ref; sym_lambda; sym_inherited; sym_exprDot;
   sym_exprDeref; sym_exprAs; sym_exprTpl; sym_exprSubscript; sym_exprCall];
   STATE 8019 [sym_exprBinary; sym_exprUnary]; STATE 7478 [sym_exprParens; sym_exprBrackets;
   sym__literal; sym_literalString]; STATE 6664 [sym__literalString; sym_literalChar];
   STATE 7478 [sym_literalNumber]; STATE 7742 [sym__literalInt; sym__literalFloat];
   STATE 1380 [sym__ppIf]; STATE 6327 [sym__ppStatementBlock];
   STATE 11840 [aux_sym_labeledStatement_repeat1]; STATE 863 [aux_sym__statementsTr_repeat1];
   STATE 6664 [aux_sym_literalString_repeat1]; ACTIONS 397 [anon_sym_SEMI];
   ACTIONS 399 [anon_sym_LBRACK]; ACTIONS 401 [anon_sym_LPAREN];
   ACTIONS 403 [aux_sym__literalString_token1]; ACTIONS 405 [anon_sym_POUND];
   ACTIONS 407 [aux_sym__literalInt_token1]; ACTIONS 409 [aux_sym__literalInt_token2;
   aux_sym__literalInt_token3]; ACTIONS 407 [aux_sym__literalFloat_token1];
   ACTIONS 411 [aux_sym_ppUsesBlock_token1]; ACTIONS 413 [sym_kAdd; sym_kSub];
   ACTIONS 415 [sym_kAt]; ACTIONS 417 [sym_kTrue; sym_kFalse]; ACTIONS 419 [sym_labelNumber];
   ACTIONS 3 [sym__space]; ACTIONS 5 [sym_ppDirective]; ACTIONS 3 [sym_comment];
   ACTIONS 417 [sym_ppFragmentExpr]; ACTIONS 397 [sym_ppFragmentStmt];
   ACTIONS 403 [sym__literalStringMultiline]; ACTIONS 421 [sym_identifier];
   ACTIONS 423 [sym_kSpecialize]; ACTIONS 427 [sym_kAsm]; ACTIONS 429 [sym_kBegin];
   ACTIONS 431 [sym_kCase]; ACTIONS 433 [sym_kConst]; ACTIONS 1881 [sym_kEnd];
   ACTIONS 437 [sym_kFor]; ACTIONS 439 [sym_kFunction]; ACTIONS 441 [sym_kGoto];
   ACTIONS 443 [sym_kIf]; ACTIONS 445 [sym_kInherited]; ACTIONS 417 [sym_kNil];
   ACTIONS 415 [sym_kNot]; ACTIONS 439 [sym_kProcedure]; ACTIONS 447 [sym_kRaise];
   ACTIONS 449 [sym_kRepeat]; ACTIONS 451 [sym_kString]; ACTIONS 453 [sym_kTry];
   ACTIONS 455 [sym_kVar]; ACTIONS 457 [sym_kWhile]; ACTIONS 459 [sym_kWith]].

(** State 476. *)
Definition ts_parse_table_476 : parse_row :=
  [STATE 6213 [sym_if]; STATE 6327 [sym_ifElse; sym_while; sym_repeat; sym_for; sym_foreach;
   sym_try; sym_case; sym_block; sym_asm; sym_with; sym_raise; sym_statement; sym_goto;
   sym__statement]; STATE 14906 [sym_ifTr; sym_ifElseTr; sym_whileTr; sym_repeatTr; sym_forTr;
   sym_foreachTr; sym_tryTr; sym_caseTr]; STATE 14251 [sym_blockTr]; STATE 14906 [sym_asmTr;
   sym_withTr; sym_raiseTr; sym_statementTr; sym_gotoTr; sym__statementTr];
   STATE 13915 [sym_assignment]; STATE 11785 [sym_varAssignDef]; STATE 13915 [sym_varDef;
   sym_constDef]; STATE 6166 [sym_label]; STATE 14906 [sym__statementsTr]; STATE 8019 [sym__expr;
   sym_exprConditional]; STATE 7478 [sym__ref; sym_lambda; sym_inherited; sym_exprDot;
   sym_exprDeref; sym_exprAs; sym_exprTpl; sym_exprSubscript; sym_exprCall];
   STATE 8019 [sym_exprBinary; sym_exprUnary]; STATE 7478 [sym_exprParens; sym_exprBrackets;
   sym__literal; sym_literalString]; STATE 6664 [sym__literalString; sym_literalChar];
   STATE 7478 [sym_literalNumber]; STATE 7742 [sym__literalInt; sym__literalFloat];
   STATE 1380 [sym__ppIf]; STATE 6327 [sym__ppStatementBlock];
   STATE 11840 [aux_sym_labeledStatement_repeat1]; STATE 863 [aux_sym__statementsTr_repeat1];
   STATE 6664 [aux_sym_literalString_repeat1]; ACTIONS 397 [anon_sym_SEMI];
   ACTIONS 399 [anon_sym_LBRACK]; ACTIONS 401 [anon_sym_LPAREN];
   ACTIONS 403 [aux_sym__literalString_token1]; ACTIONS 405 [anon_sym_POUND];
   ACTIONS 407 [aux_sym__literalInt_token1]; ACTIONS 409 [aux_sym__literalInt_token2;
   aux_sym__literalInt_token3]; ACTIONS 407 [aux_sym__literalFloat_token1];
   ACTIONS 411 [aux_sym_ppUsesBlock_token1]; ACTIONS 413 [sym_kAdd; sym_kSub];
   ACTIONS 415 [sym_kAt]; ACTIONS 417 [sym_kTrue; sym_kFalse]; ACTIONS 419 [sym_labelNumber];
   ACTIONS 3 [sym__space]; ACTIONS 5 [sym_ppDirective]; ACTIONS 3 [sym_comment];
   ACTIONS 417 [sym_ppFragmentExpr]; ACTIONS 397 [sym_ppFragmentStmt];
   ACTIONS 403 [sym__literalStringMultiline]; ACTIONS 421 [sym_identifier];
   ACTIONS 423 [sym_kSpecialize]; ACTIONS 427 [sym_kAsm]; ACTIONS 429 [sym_kBegin];
   ACTIONS 431 [sym_kCase]; ACTIONS 433 [sym_kConst]; ACTIONS 3262 [sym_kEnd];
   ACTIONS 437 [sym_kFor]; ACTIONS 439 [sym_kFunction]; ACTIONS 441 [sym_kGoto];
   ACTIONS 443 [sym_kIf]; ACTIONS 445 [sym_kInherited]; ACTIONS 417 [sym_kNil];
   ACTIONS 415 [sym_kNot]; ACTIONS 439 [sym_kProcedure]; ACTIONS 447 [sym_kRaise];
   ACTIONS 449 [sym_kRepeat]; ACTIONS 451 [sym_kString]; ACTIONS 453 [sym_kTry];
   ACTIONS 455 [sym_kVar]; ACTIONS 457 [sym_kWhile]; ACTIONS 459 [sym_kWith]].

(** State 477. *)
Definition ts_parse_table_477 : parse_row :=
  [STATE 6213 [sym_if]; STATE 6327 [sym_ifElse; sym_while; sym_repeat; sym_for; sym_foreach;
   sym_try; sym_case; sym_block; sym_asm; sym_with; sym_raise; sym_statement; sym_goto;
   sym__statement]; STATE 15450 [sym_ifTr; sym_ifElseTr; sym_whileTr; sym_repeatTr; sym_forTr;
   sym_foreachTr; sym_tryTr; sym_caseTr]; STATE 14251 [sym_blockTr]; STATE 15450 [sym_asmTr;
   sym_withTr; sym_raiseTr; sym_statementTr; sym_gotoTr; sym__statementTr];
   STATE 13915 [sym_assignment]; STATE 11785 [sym_varAssignDef]; STATE 13915 [sym_varDef;
   sym_constDef]; STATE 6166 [sym_label]; STATE 15450 [sym__statementsTr]; STATE 8019 [sym__expr;
   sym_exprConditional]; STATE 7478 [sym__ref; sym_lambda; sym_inherited; sym_exprDot;
   sym_exprDeref; sym_exprAs; sym_exprTpl; sym_exprSubscript; sym_exprCall];
   STATE 8019 [sym_exprBinary; sym_exprUnary]; STATE 7478 [sym_exprParens; sym_exprBrackets;
   sym__literal; sym_literalString]; STATE 6664 [sym__literalString; sym_literalChar];
   STATE 7478 [sym_literalNumber]; STATE 7742 [sym__literalInt; sym__literalFloat];
   STATE 1380 [sym__ppIf]; STATE 6327 [sym__ppStatementBlock];
   STATE 11840 [aux_sym_labeledStatement_repeat1]; STATE 863 [aux_sym__statementsTr_repeat1];
   STATE 6664 [aux_sym_literalString_repeat1]; ACTIONS 397 [anon_sym_SEMI];
   ACTIONS 399 [anon_sym_LBRACK]; ACTIONS 401 [anon_sym_LPAREN];
   ACTIONS 403 [aux_sym__literalString_token1]; ACTIONS 405 [anon_sym_POUND];
   ACTIONS 407 [aux_sym__literalInt_token1]; ACTIONS 409 [aux_sym__literalInt_token2;
   aux_sym__literalInt_token3]; ACTIONS 407 [aux_sym__literalFloat_token1];
   ACTIONS 411 [aux_sym_ppUsesBlock_token1]; ACTIONS 413 [sym_kAdd; sym_kSub];
   ACTIONS 415 [sym_kAt]; ACTIONS 417 [sym_kTrue; sym_kFalse]; ACTIONS 419 [sym_labelNumber];
   ACTIONS 3 [sym__space]; ACTIONS 5 [sym_ppDirective]; ACTIONS 3 [sym_comment];
   ACTIONS 417 [sym_ppFragmentExpr]; ACTIONS 397 [sym_ppFragmentStmt];
   ACTIONS 403 [sym__literalStringMultiline]; ACTIONS 421 [sym_identifier];
   ACTIONS 423 [sym_kSpecialize]; ACTIONS 427 [sym_kAsm]; ACTIONS 429 [sym_kBegin];
   ACTIONS 431 [sym_kCase]; ACTIONS 433 [sym_kConst]; ACTIONS 3264 [sym_kEnd];
   ACTIONS 437 [sym_kFor]; ACTIONS 439 [sym_kFunction]; ACTIONS 441 [sym_kGoto];
   ACTIONS 443 [sym_kIf]; ACTIONS 445 [sym_kInherited]; ACTIONS 417 [sym_kNil];
   ACTIONS 415 [sym_kNot]; ACTIONS 439 [sym_kProcedure]; ACTIONS 447 [sym_kRaise];
   ACTIONS 449 [sym_kRepeat]; ACTIONS 451 [sym_kString]; ACTIONS 453 [sym_kTry];
   ACTIONS 455 [sym_kVar]; ACTIONS 457 [sym_kWhile]; ACTIONS 459 [sym_kWith]].

(** State 478. *)
Definition ts_parse_table_478 : parse_row :=
  [STATE 6213 [sym_if]; STATE 6327 [sym_ifElse; sym_while; sym_repeat; sym_for; sym_foreach;
   sym_try; sym_case; sym_block; sym_asm; sym_with; sym_raise; sym_statement; sym_goto;
   sym__statement]; STATE 15504 [sym_ifTr; sym_ifElseTr; sym_whileTr; sym_repeatTr; sym_forTr;
   sym_foreachTr; sym_tryTr; sym_caseTr]; STATE 14251 [sym_blockTr]; STATE 15504 [sym_asmTr;
   sym_withTr; sym_raiseTr; sym_statementTr; sym_gotoTr; sym__statementTr];
   STATE 13915 [sym_assignment]; STATE 11785 [sym_varAssignDef]; STATE 13915 [sym_varDef;
   sym_constDef]; STATE 6166 [sym_label]; STATE 15504 [sym__statementsTr]; STATE 8019 [sym__expr;
   sym_exprConditional]; STATE 7478 [sym__ref; sym_lambda; sym_inherited; sym_exprDot;
   sym_exprDeref; sym_exprAs; sym_exprTpl; sym_exprSubscript; sym_exprCall];
   STATE 8019 [sym_exprBinary; sym_exprUnary]; STATE 7478 [sym_exprParens; sym_exprBrackets;
   sym__literal; sym_literalString]; STATE 6664 [sym__literalString; sym_literalChar];
   STATE 7478 [sym_literalNumber]; STATE 7742 [sym__literalInt; sym__literalFloat];
   STATE 1380 [sym__ppIf]; STATE 6327 [sym__ppStatementBlock];
   STATE 11840 [aux_sym_labeledStatement_repeat1]; STATE 863 [aux_sym__statementsTr_repeat1];
   STATE 6664 [aux_sym_literalString_repeat1]; ACTIONS 397 [anon_sym_SEMI];
   ACTIONS 399 [anon_sym_LBRACK]; ACTIONS 401 [anon_sym_LPAREN];
   ACTIONS 403 [aux_sym__literalString_token1]; ACTIONS 405 [anon_sym_POUND];
   ACTIONS 407 [aux_sym__literalInt_token1]; ACTIONS 409 [aux_sym__literalInt_token2;
   aux_sym__literalInt_token3]; ACTIONS 407 [aux_sym__literalFloat_token1];
   ACTIONS 411 [aux_sym_ppUsesBlock_token1]; ACTIONS 413 [sym_kAdd; sym_kSub];
   ACTIONS 415 [sym_kAt]; ACTIONS 417 [sym_kTrue; sym_kFalse]; ACTIONS 419 [sym_labelNumber];
   ACTIONS 3 [sym__space]; ACTIONS 5 [sym_ppDirective]; ACTIONS 3 [sym_comment];
   ACTIONS 417 [sym_ppFragmentExpr]; ACTIONS 397 [sym_ppFragmentStmt];
   ACTIONS 403 [sym__literalStringMultiline]; ACTIONS 421 [sym_identifier];
   ACTIONS 423 [sym_kSpecialize]; ACTIONS 427 [sym_kAsm]; ACTIONS 429 [sym_kBegin];
   ACTIONS 431 [sym_kCase]; ACTIONS 433 [sym_kConst]; ACTIONS 3266 [sym_kEnd];
   ACTIONS 437 [sym_kFor]; ACTIONS 439 [sym_kFunction]; ACTIONS 441 [sym_kGoto];
   ACTIONS 443 [sym_kIf]; ACTIONS 445 [sym_kInherited]; ACTIONS 417 [sym_kNil];
   ACTIONS 415 [sym_kNot]; ACTIONS 439 [sym_kProcedure]; ACTIONS 447 [sym_kRaise];
   ACTIONS 449 [sym_kRepeat]; ACTIONS 451 [sym_kString]; ACTIONS 453 [sym_kTry];
   ACTIONS 455 [sym_kVar]; ACTIONS 457 [sym_kWhile]; ACTIONS 459 [sym_kWith]].

(** State 479. *)
Definition ts_parse_table_479 : parse_row :=
  [STATE 6213 [sym_if]; STATE 6327 [sym_ifElse; sym_while; sym_repeat; sym_for; sym_foreach;
   sym_try; sym_case; sym_block; sym_asm; sym_with; sym_raise; sym_statement; sym_goto;
   sym__statement]; STATE 15515 [sym_ifTr; sym_ifElseTr; sym_whileTr; sym_repeatTr; sym_forTr;
   sym_foreachTr; sym_tryTr; sym_caseTr]; STATE 14251 [sym_blockTr]; STATE 15515 [sym_asmTr;
   sym_withTr; sym_raiseTr; sym_statementTr; sym_gotoTr; sym__statementTr];
   STATE 13915 [sym_assignment]; STATE 11785 [sym_varAssignDef]; STATE 13915 [sym_varDef;
   sym_constDef]; STATE 6166 [sym_label]; STATE 15515 [sym__statementsTr]; STATE 8019 [sym__expr;
   sym_exprConditional]; STATE 7478 [sym__ref; sym_lambda; sym_inherited; sym_exprDot;
   sym_exprDeref; sym_exprAs; sym_exprTpl; sym_exprSubscript; sym_exprCall];
   STATE 8019 [sym_exprBinary; sym_exprUnary]; STATE 7478 [sym_exprParens; sym_exprBrackets;
   sym__literal; sym_literalString]; STATE 6664 [sym__literalString; sym_literalChar];
   STATE 7478 [sym_literalNumber]; STATE 7742 [sym__literalInt; sym__literalFloat];
   STATE 1380 [sym__ppIf]; STATE 6327 [sym__ppStatementBlock];
   STATE 11840 [aux_sym_labeledStatement_repeat1]; STATE 863 [aux_sym__statementsTr_repeat1];
   STATE 6664 [aux_sym_literalString_repeat1]; ACTIONS 397 [anon_sym_SEMI];
   ACTIONS 399 [anon_sym_LBRACK]; ACTIONS 401 [anon_sym_LPAREN];
   ACTIONS 403 [aux_sym__literalString_token1]; ACTIONS 405 [anon_sym_POUND];
   ACTIONS 407 [aux_sym__literalInt_token1]; ACTIONS 409 [aux_sym__literalInt_token2;
   aux_sym__literalInt_token3]; ACTIONS 407 [aux_sym__literalFloat_token1];
   ACTIONS 411 [aux_sym_ppUsesBlock_token1]; ACTIONS 413 [sym_kAdd; sym_kSub];
   ACTIONS 415 [sym_kAt]; ACTIONS 417 [sym_kTrue; sym_kFalse]; ACTIONS 419 [sym_labelNumber];
   ACTIONS 3 [sym__space]; ACTIONS 5 [sym_ppDirective]; ACTIONS 3 [sym_comment];
   ACTIONS 417 [sym_ppFragmentExpr]; ACTIONS 397 [sym_ppFragmentStmt];
   ACTIONS 403 [sym__literalStringMultiline]; ACTIONS 421 [sym_identifier];
   ACTIONS 423 [sym_kSpecialize]; ACTIONS 427 [sym_kAsm]; ACTIONS 429 [sym_kBegin];
   ACTIONS 431 [sym_kCase]; ACTIONS 433 [sym_kConst]; ACTIONS 3268 [sym_kEnd];
   ACTIONS 437 [sym_kFor]; ACTIONS 439 [sym_kFunction]; ACTIONS 441 [sym_kGoto];
   ACTIONS 443 [sym_kIf]; ACTIONS 445 [sym_kInherited]; ACTIONS 417 [sym_kNil];
   ACTIONS 415 [sym_kNot]; ACTIONS 439 [sym_kProcedure]; ACTIONS 447 [sym_kRaise];
   ACTIONS 449 [sym_kRepeat]; ACTIONS 451 [sym_kString]; ACTIONS 453 [sym_kTry];
   ACTIONS 455 [sym_kVar]; ACTIONS 457 [sym_kWhile]; ACTIONS 459 [sym_kWith]].

(** State 480. *)
Definition ts_parse_table_480 : parse_row :=
  [STATE 5784 [sym_if]; STATE 5735 [sym_ifElse; sym_while; sym_repeat; sym_for; sym_foreach;
   sym_try; sym_case; sym_block; sym_asm; sym_with; sym_raise; sym_statement; sym_goto;
   sym_labeledStatement; sym__statement]; STATE 11558 [sym_ifTr; sym_ifElseTr; sym_whileTr;
   sym_repeatTr; sym_forTr; sym_foreachTr; sym_tryTr; sym_caseTr]; STATE 11564 [sym_blockTr];
   STATE 11558 [sym_asmTr; sym_withTr; sym_raiseTr; sym_statementTr; sym_gotoTr;
   sym_labeledStatementTr; sym__statementTr]; STATE 11443 [sym_assignment];
   STATE 11931 [sym_varAssignDef]; STATE 11443 [sym_varDef; sym_constDef]; STATE 703 [sym_label];
   STATE 7206 [sym__expr; sym_exprConditional]; STATE 6884 [sym__ref; sym_lambda; sym_inherited;
   sym_exprDot; sym_exprDeref; sym_exprAs; sym_exprTpl; sym_exprSubscript; sym_exprCall];
   STATE 7206 [sym_exprBinary; sym_exprUnary]; STATE 6884 [sym_exprParens; sym_exprBrackets;
   sym__literal; sym_literalString]; STATE 5959 [sym__literalString; sym_literalChar];
   STATE 6884 [sym_literalNumber]; STATE 6992 [sym__literalInt; sym__literalFloat];
   STATE 5959 [aux_sym_literalString_repeat1]; ACTIONS 3270 [anon_sym_SEMI];
   ACTIONS 3196 [anon_sym_LBRACK]; ACTIONS 3198 [anon_sym_LPAREN];
   ACTIONS 3200 [aux_sym__literalString_token1]; ACTIONS 3202 [anon_sym_POUND];
   ACTIONS 3204 [aux_sym__literalInt_token1]; ACTIONS 3206 [aux_sym__literalInt_token2;
   aux_sym__literalInt_token3]; ACTIONS 3204 [aux_sym__literalFloat_token1];
   ACTIONS 3208 [sym_kAdd; sym_kSub]; ACTIONS 3210 [sym_kAt]; ACTIONS 3212 [sym_kTrue;
   sym_kFalse]; ACTIONS 3214 [sym_labelNumber]; ACTIONS 3 [sym__space];
   ACTIONS 5 [sym_ppDirective]; ACTIONS 3 [sym_comment]; ACTIONS 3212 [sym_ppFragmentExpr];
   ACTIONS 3200 [sym__literalStringMultiline]; ACTIONS 3216 [sym_identifier];
   ACTIONS 3218 [sym_kSpecialize]; ACTIONS 3220 [sym_kAsm]; ACTIONS 3222 [sym_kBegin];
   ACTIONS 3224 [sym_kCase]; ACTIONS 3226 [sym_kConst]; ACTIONS 3272 [sym_kElse; sym_kEnd;
   sym_kFinalization]; ACTIONS 3232 [sym_kFor]; ACTIONS 3234 [sym_kFunction];
   ACTIONS 3236 [sym_kGoto]; ACTIONS 3274 [sym_kIf]; ACTIONS 3272 [sym_kImplementation];
   ACTIONS 3240 [sym_kInherited]; ACTIONS 3272 [sym_kInitialization; sym_kInterface];
   ACTIONS 3212 [sym_kNil]; ACTIONS 3210 [sym_kNot]; ACTIONS 3234 [sym_kProcedure];
   ACTIONS 3242 [sym_kRaise]; ACTIONS 3244 [sym_kRepeat]; ACTIONS 3246 [sym_kString];
   ACTIONS 3248 [sym_kTry]; ACTIONS 3250 [sym_kVar]; ACTIONS 3252 [sym_kWhile];
   ACTIONS 3254 [sym_kWith]].

(** State 481. *)
Definition ts_parse_table_481 : parse_row :=
  [STATE 5784 [sym_if]; STATE 5738 [sym_ifElse; sym_while; sym_repeat; sym_for; sym_foreach;
   sym_try; sym_case; sym_block; sym_asm; sym_with; sym_raise; sym_statement; sym_goto;
   sym_labeledStatement; sym__statement]; STATE 11563 [sym_ifTr; sym_ifElseTr; sym_whileTr;
   sym_repeatTr; sym_forTr; sym_foreachTr; sym_tryTr; sym_caseTr]; STATE 11564 [sym_blockTr];
   STATE 11563 [sym_asmTr; sym_withTr; sym_raiseTr; sym_statementTr; sym_gotoTr;
   sym_labeledStatementTr; sym__statementTr]; STATE 11443 [sym_assignment];
   STATE 11931 [sym_varAssignDef]; STATE 11443 [sym_varDef; sym_constDef]; STATE 703 [sym_label];
   STATE 7206 [sym__expr; sym_exprConditional]; STATE 6884 [sym__ref; sym_lambda; sym_inherited;
   sym_exprDot; sym_exprDeref; sym_exprAs; sym_exprTpl; sym_exprSubscript; sym_exprCall];
   STATE 7206 [sym_exprBinary; sym_exprUnary]; STATE 6884 [sym_exprParens; sym_exprBrackets;
   sym__literal; sym_literalString]; STATE 5959 [sym__literalString; sym_literalChar];
   STATE 6884 [sym_literalNumber]; STATE 6992 [sym__literalInt; sym__literalFloat];
   STATE 5959 [aux_sym_literalString_repeat1]; ACTIONS 3276 [anon_sym_SEMI];
   ACTIONS 3196 [anon_sym_LBRACK]; ACTIONS 3198 [anon_sym_LPAREN];
   ACTIONS 3200 [aux_sym__literalString_token1]; ACTIONS 3202 [anon_sym_POUND];
   ACTIONS 3204 [aux_sym__literalInt_token1]; ACTIONS 3206 [aux_sym__literalInt_token2;
   aux_sym__literalInt_token3]; ACTIONS 3204 [aux_sym__literalFloat_token1];
   ACTIONS 3208 [sym_kAdd; sym_kSub]; ACTIONS 3210 [sym_kAt]; ACTIONS 3212 [sym_kTrue;
   sym_kFalse]; ACTIONS 3214 [sym_labelNumber]; ACTIONS 3 [sym__space];
   ACTIONS 5 [sym_ppDirective]; ACTIONS 3 [sym_comment]; ACTIONS 3212 [sym_ppFragmentExpr];
   ACTIONS 3200 [sym__literalStringMultiline]; ACTIONS 3216 [sym_identifier];
   ACTIONS 3218 [sym_kSpecialize]; ACTIONS 3220 [sym_kAsm]; ACTIONS 3222 [sym_kBegin];
   ACTIONS 3224 [sym_kCase]; ACTIONS 3226 [sym_kConst]; ACTIONS 3278 [sym_kElse; sym_kEnd;
   sym_kFinalization]; ACTIONS 3232 [sym_kFor]; ACTIONS 3234 [sym_kFunction];
   ACTIONS 3236 [sym_kGoto]; ACTIONS 3274 [sym_kIf]; ACTIONS 3278 [sym_kImplementation];
   ACTIONS 3240 [sym_kInherited]; ACTIONS 3278 [sym_kInitialization; sym_kInterface];
   ACTIONS 3212 [sym_kNil]; ACTIONS 3210 [sym_kNot]; ACTIONS 3234 [sym_kProcedure];
   ACTIONS 3242 [sym_kRaise]; ACTIONS 3244 [sym_kRepeat]; ACTIONS 3246 [sym_kString];
   ACTIONS 3248 [sym_kTry]; ACTIONS 3250 [sym_kVar]; ACTIONS 3252 [sym_kWhile];
   ACTIONS 3254 [sym_kWith]].

(** State 482. *)
Definition ts_parse_table_482 : parse_row :=
  [STATE 5784 [sym_if]; STATE 5795 [sym_ifElse; sym_while; sym_repeat; sym_for; sym_foreach;
   sym_try; sym_case; sym_block; sym_asm; sym_with; sym_raise; sym_statement; sym_goto;
   sym_labeledStatement; sym__statement]; STATE 11581 [sym_ifTr; sym_ifElseTr; sym_whileTr;
   sym_repeatTr; sym_forTr; sym_foreachTr; sym_tryTr; sym_caseTr]; STATE 11564 [sym_blockTr];
   STATE 11581 [sym_asmTr; sym_withTr; sym_raiseTr; sym_statementTr; sym_gotoTr;
   sym_labeledStatementTr; sym__statementTr]; STATE 11443 [sym_assignment];
   STATE 11931 [sym_varAssignDef]; STATE 11443 [sym_varDef; sym_constDef]; STATE 703 [sym_label];
   STATE 7206 [sym__expr; sym_exprConditional]; STATE 6884 [sym__ref; sym_lambda; sym_inherited;
   sym_exprDot; sym_exprDeref; sym_exprAs; sym_exprTpl; sym_exprSubscript; sym_exprCall];
   STATE 7206 [sym_exprBinary; sym_exprUnary]; STATE 6884 [sym_exprParens; sym_exprBrackets;
   sym__literal; sym_literalString]; STATE 5959 [sym__literalString; sym_literalChar];
   STATE 6884 [sym_literalNumber]; STATE 6992 [sym__literalInt; sym__literalFloat];
   STATE 5959 [aux_sym_literalString_repeat1]; ACTIONS 3280 [anon_sym_SEMI];
   ACTIONS 3196 [anon_sym_LBRACK]; ACTIONS 3198 [anon_sym_LPAREN];
   ACTIONS 3200 [aux_sym__literalString_token1]; ACTIONS 3202 [anon_sym_POUND];
   ACTIONS 3204 [aux_sym__literalInt_token1]; ACTIONS 3206 [aux_sym__literalInt_token2;
   aux_sym__literalInt_token3]; ACTIONS 3204 [aux_sym__literalFloat_token1];
   ACTIONS 3208 [sym_kAdd; sym_kSub]; ACTIONS 3210 [sym_kAt]; ACTIONS 3212 [sym_kTrue;
   sym_kFalse]; ACTIONS 3214 [sym_labelNumber]; ACTIONS 3 [sym__space];
   ACTIONS 5 [sym_ppDirective]; ACTIONS 3 [sym_comment]; ACTIONS 3212 [sym_ppFragmentExpr];
   ACTIONS 3200 [sym__literalStringMultiline]; ACTIONS 3216 [sym_identifier];
   ACTIONS 3218 [sym_kSpecialize]; ACTIONS 3220 [sym_kAsm]; ACTIONS 3222 [sym_kBegin];
   ACTIONS 3224 [sym_kCase]; ACTIONS 3226 [sym_kConst]; ACTIONS 3282 [sym_kElse; sym_kEnd;
   sym_kFinalization]; ACTIONS 3232 [sym_kFor]; ACTIONS 3234 [sym_kFunction];
   ACTIONS 3236 [sym_kGoto]; ACTIONS 3274 [sym_kIf]; ACTIONS 3282 [sym_kImplementation];
   ACTIONS 3240 [sym_kInherited]; ACTIONS 3282 [sym_kInitialization; sym_kInterface];
   ACTIONS 3212 [sym_kNil]; ACTIONS 3210 [sym_kNot]; ACTIONS 3234 [sym_kProcedure];
   ACTIONS 3242 [sym_kRaise]; ACTIONS 3244 [sym_kRepeat]; ACTIONS 3246 [sym_kString];
   ACTIONS 3248 [sym_kTry]; ACTIONS 3250 [sym_kVar]; ACTIONS 3252 [sym_kWhile];
   ACTIONS 3254 [sym_kWith]].

(** State 483. *)
Definition ts_parse_table_483 : parse_row :=
  [STATE 6213 [sym_if]; STATE 6327 [sym_ifElse; sym_while; sym_repeat; sym_for; sym_foreach;
   sym_try; sym_case; sym_block; sym_asm; sym_with; sym_raise; sym_statement; sym_goto;
   sym__statement]; STATE 15728 [sym_ifTr; sym_ifElseTr; sym_whileTr; sym_repeatTr; sym_forTr;
   sym_foreachTr; sym_tryTr; sym_caseTr]; STATE 14251 [sym_blockTr]; STATE 15728 [sym_asmTr;
   sym_withTr; sym_raiseTr; sym_statementTr; sym_gotoTr; sym__statementTr];
   STATE 13915 [sym_assignment]; STATE 11785 [sym_varAssignDef]; STATE 13915 [sym_varDef;
   sym_constDef]; STATE 6166 [sym_label]; STATE 15728 [sym__statementsTr]; STATE 8019 [sym__expr;
   sym_exprConditional]; STATE 7478 [sym__ref; sym_lambda; sym_inherited; sym_exprDot;
   sym_exprDeref; sym_exprAs; sym_exprTpl; sym_exprSubscript; sym_exprCall];
   STATE 8019 [sym_exprBinary; sym_exprUnary]; STATE 7478 [sym_exprParens; sym_exprBrackets;
   sym__literal; sym_literalString]; STATE 6664 [sym__literalString; sym_literalChar];
   STATE 7478 [sym_literalNumber]; STATE 7742 [sym__literalInt; sym__literalFloat];
   STATE 1380 [sym__ppIf]; STATE 6327 [sym__ppStatementBlock];
   STATE 11840 [aux_sym_labeledStatement_repeat1]; STATE 863 [aux_sym__statementsTr_repeat1];
   STATE 6664 [aux_sym_literalString_repeat1]; ACTIONS 397 [anon_sym_SEMI];
   ACTIONS 399 [anon_sym_LBRACK]; ACTIONS 401 [anon_sym_LPAREN];
   ACTIONS 403 [aux_sym__literalString_token1]; ACTIONS 405 [anon_sym_POUND];
   ACTIONS 407 [aux_sym__literalInt_token1]; ACTIONS 409 [aux_sym__literalInt_token2;
   aux_sym__literalInt_token3]; ACTIONS 407 [aux_sym__literalFloat_token1];
   ACTIONS 411 [aux_sym_ppUsesBlock_token1]; ACTIONS 413 [sym_kAdd; sym_kSub];
   ACTIONS 415 [sym_kAt]; ACTIONS 417 [sym_kTrue; sym_kFalse]; ACTIONS 419 [sym_labelNumber];
   ACTIONS 3 [sym__space]; ACTIONS 5 [sym_ppDirective]; ACTIONS 3 [sym_comment];
   ACTIONS 417 [sym_ppFragmentExpr]; ACTIONS 397 [sym_ppFragmentStmt];
   ACTIONS 403 [sym__literalStringMultiline]; ACTIONS 421 [sym_identifier];
   ACTIONS 423 [sym_kSpecialize]; ACTIONS 427 [sym_kAsm]; ACTIONS 429 [sym_kBegin];
   ACTIONS 431 [sym_kCase]; ACTIONS 433 [sym_kConst]; ACTIONS 1986 [sym_kEnd];
   ACTIONS 437 [sym_kFor]; ACTIONS 439 [sym_kFunction]; ACTIONS 441 [sym_kGoto];
   ACTIONS 443 [sym_kIf]; ACTIONS 445 [sym_kInherited]; ACTIONS 417 [sym_kNil];
   ACTIONS 415 [sym_kNot]; ACTIONS 439 [sym_kProcedure]; ACTIONS 447 [sym_kRaise];
   ACTIONS 449 [sym_kRepeat]; ACTIONS 451 [sym_kString]; ACTIONS 453 [sym_kTry];
   ACTIONS 455 [sym_kVar]; ACTIONS 457 [sym_kWhile]; ACTIONS 459 [sym_kWith]].

(** State 484. *)
Definition ts_parse_table_484 : parse_row :=
  [STATE 5784 [sym_if]; STATE 5809 [sym_ifElse; sym_while; sym_repeat; sym_for; sym_foreach;
   sym_try; sym_case; sym_block; sym_asm; sym_with; sym_raise; sym_statement; sym_goto];
   STATE 5797 [sym_labeledStatement]; STATE 5809 [sym__statement]; STATE 11591 [sym_ifTr;
   sym_ifElseTr; sym_whileTr; sym_repeatTr; sym_forTr; sym_foreachTr; sym_tryTr; sym_caseTr];
   STATE 11564 [sym_blockTr]; STATE 11591 [sym_asmTr; sym_withTr; sym_raiseTr; sym_statementTr;
   sym_gotoTr]; STATE 11586 [sym_labeledStatementTr]; STATE 11591 [sym__statementTr];
   STATE 11443 [sym_assignment]; STATE 11931 [sym_varAssignDef]; STATE 11443 [sym_varDef;
   sym_constDef]; STATE 703 [sym_label]; STATE 7206 [sym__expr; sym_exprConditional];
   STATE 6884 [sym__ref; sym_lambda; sym_inherited; sym_exprDot; sym_exprDeref; sym_exprAs;
   sym_exprTpl; sym_exprSubscript; sym_exprCall]; STATE 7206 [sym_exprBinary; sym_exprUnary];
   STATE 6884 [sym_exprParens; sym_exprBrackets; sym__literal; sym_literalString];
   STATE 5959 [sym__literalString; sym_literalChar]; STATE 6884 [sym_literalNumber];
   STATE 6992 [sym__literalInt; sym__literalFloat]; STATE 5959 [aux_sym_literalString_repeat1];
   ACTIONS 3284 [anon_sym_SEMI]; ACTIONS 3196 [anon_sym_LBRACK]; ACTIONS 3198 [anon_sym_LPAREN];
   ACTIONS 3200 [aux_sym__literalString_token1]; ACTIONS 3202 [anon_sym_POUND];
   ACTIONS 3204 [aux_sym__literalInt_token1]; ACTIONS 3206 [aux_sym__literalInt_token2;
   aux_sym__literalInt_token3]; ACTIONS 3204 [aux_sym__literalFloat_token1];
   ACTIONS 3208 [sym_kAdd; sym_kSub]; ACTIONS 3210 [sym_kAt]; ACTIONS 3212 [sym_kTrue;
   sym_kFalse]; ACTIONS 3214 [sym_labelNumber]; ACTIONS 3 [sym__space];
   ACTIONS 5 [sym_ppDirective]; ACTIONS 3 [sym_comment]; ACTIONS 3212 [sym_ppFragmentExpr];
   ACTIONS 3200 [sym__literalStringMultiline]; ACTIONS 3216 [sym_identifier];
   ACTIONS 3218 [sym_kSpecialize]; ACTIONS 3220 [sym_kAsm]; ACTIONS 3222 [sym_kBegin];
   ACTIONS 3224 [sym_kCase]; ACTIONS 3226 [sym_kConst]; ACTIONS 3286 [sym_kElse; sym_kEnd;
   sym_kFinalization]; ACTIONS 3232 [sym_kFor]; ACTIONS 3234 [sym_kFunction];
   ACTIONS 3236 [sym_kGoto]; ACTIONS 3274 [sym_kIf]; ACTIONS 3286 [sym_kImplementation];
   ACTIONS 3240 [sym_kInherited]; ACTIONS 3286 [sym_kInitialization; sym_kInterface];
   ACTIONS 3212 [sym_kNil]; ACTIONS 3210 [sym_kNot]; ACTIONS 3234 [sym_kProcedure];
   ACTIONS 3242 [sym_kRaise]; ACTIONS 3244 [sym_kRepeat]; ACTIONS 3246 [sym_kString];
   ACTIONS 3248 [sym_kTry]; ACTIONS 3250 [sym_kVar]; ACTIONS 3252 [sym_kWhile];
   ACTIONS 3254 [sym_kWith]].

(** State 485. *)
Definition ts_parse_table_485 : parse_row :=
  [STATE 6213 [sym_if]; STATE 6327 [sym_ifElse; sym_while; sym_repeat; sym_for; sym_foreach;
   sym_try; sym_case; sym_block; sym_asm; sym_with; sym_raise; sym_statement; sym_goto;
   sym__statement]; STATE 15736 [sym_ifTr; sym_ifElseTr; sym_whileTr; sym_repeatTr; sym_forTr;
   sym_foreachTr; sym_tryTr; sym_caseTr]; STATE 14251 [sym_blockTr]; STATE 15736 [sym_asmTr;
   sym_withTr; sym_raiseTr; sym_statementTr; sym_gotoTr; sym__statementTr];
   STATE 13915 [sym_assignment]; STATE 11785 [sym_varAssignDef]; STATE 13915 [sym_varDef;
   sym_constDef]; STATE 6166 [sym_label]; STATE 15736 [sym__statementsTr]; STATE 8019 [sym__expr;
   sym_exprConditional]; STATE 7478 [sym__ref; sym_lambda; sym_inherited; sym_exprDot;
   sym_exprDeref; sym_exprAs; sym_exprTpl; sym_exprSubscript; sym_exprCall];
   STATE 8019 [sym_exprBinary; sym_exprUnary]; STATE 7478 [sym_exprParens; sym_exprBrackets;
   sym__literal; sym_literalString]; STATE 6664 [sym__literalString; sym_literalChar];
   STATE 7478 [sym_literalNumber]; STATE 7742 [sym__literalInt; sym__literalFloat];
   STATE 1380 [sym__ppIf]; STATE 6327 [sym__ppStatementBlock];
   STATE 11840 [aux_sym_labeledStatement_repeat1]; STATE 863 [aux_sym__statementsTr_repeat1];
   STATE 6664 [aux_sym_literalString_repeat1]; ACTIONS 397 [anon_sym_SEMI];
   ACTIONS 399 [anon_sym_LBRACK]; ACTIONS 401 [anon_sym_LPAREN];
   ACTIONS 403 [aux_sym__literalString_token1]; ACTIONS 405 [anon_sym_POUND];
   ACTIONS 407 [aux_sym__literalInt_token1]; ACTIONS 409 [aux_sym__literalInt_token2;
   aux_sym__literalInt_token3]; ACTIONS 407 [aux_sym__literalFloat_token1];
   ACTIONS 411 [aux_sym_ppUsesBlock_token1]; ACTIONS 413 [sym_kAdd; sym_kSub];
   ACTIONS 415 [sym_kAt]; ACTIONS 417 [sym_kTrue; sym_kFalse]; ACTIONS 419 [sym_labelNumber];
   ACTIONS 3 [sym__space]; ACTIONS 5 [sym_ppDirective]; ACTIONS 3 [sym_comment];
   ACTIONS 417 [sym_ppFragmentExpr]; ACTIONS 397 [sym_ppFragmentStmt];
   ACTIONS 403 [sym__literalStringMultiline]; ACTIONS 421 [sym_identifier];
   ACTIONS 423 [sym_kSpecialize]; ACTIONS 427 [sym_kAsm]; ACTIONS 429 [sym_kBegin];
   ACTIONS 431 [sym_kCase]; ACTIONS 433 [sym_kConst]; ACTIONS 1990 [sym_kEnd];
   ACTIONS 437 [sym_kFor]; ACTIONS 439 [sym_kFunction]; ACTIONS 441 [sym_kGoto];
   ACTIONS 443 [sym_kIf]; ACTIONS 445 [sym_kInherited]; ACTIONS 417 [sym_kNil];
   ACTIONS 415 [sym_kNot]; ACTIONS 439 [sym_kProcedure]; ACTIONS 447 [sym_kRaise];
   ACTIONS 449 [sym_kRepeat]; ACTIONS 451 [sym_kString]; ACTIONS 453 [sym_kTry];
   ACTIONS 455 [sym_kVar]; ACTIONS 457 [sym_kWhile]; ACTIONS 459 [sym_kWith]].

(** State 486. *)
Definition ts_parse_table_486 : parse_row :=
  [STATE 5784 [sym_if]; STATE 5696 [sym_ifElse; sym_while; sym_repeat; sym_for; sym_foreach;
   sym_try; sym_case; sym_block; sym_asm; sym_with; sym_raise; sym_statement; sym_goto;
   sym_labeledStatement; sym__statement]; STATE 11547 [sym_ifTr; sym_ifElseTr; sym_whileTr;
   sym_repeatTr; sym_forTr; sym_foreachTr; sym_tryTr; sym_caseTr]; STATE 11564 [sym_blockTr];
   STATE 11547 [sym_asmTr; sym_withTr; sym_raiseTr; sym_statementTr; sym_gotoTr;
   sym_labeledStatementTr; sym__statementTr]; STATE 11443 [sym_assignment];
   STATE 11931 [sym_varAssignDef]; STATE 11443 [sym_varDef; sym_constDef]; STATE 703 [sym_label];
   STATE 7206 [sym__expr; sym_exprConditional]; STATE 6884 [sym__ref; sym_lambda; sym_inherited;
   sym_exprDot; sym_exprDeref; sym_exprAs; sym_exprTpl; sym_exprSubscript; sym_exprCall];
   STATE 7206 [sym_exprBinary; sym_exprUnary]; STATE 6884 [sym_exprParens; sym_exprBrackets;
   sym__literal; sym_literalString]; STATE 5959 [sym__literalString; sym_literalChar];
   STATE 6884 [sym_literalNumber]; STATE 6992 [sym__literalInt; sym__literalFloat];
   STATE 5959 [aux_sym_literalString_repeat1]; ACTIONS 3288 [anon_sym_SEMI];
   ACTIONS 3196 [anon_sym_LBRACK]; ACTIONS 3198 [anon_sym_LPAREN];
   ACTIONS 3200 [aux_sym__literalString_token1]; ACTIONS 3202 [anon_sym_POUND];
   ACTIONS 3204 [aux_sym__literalInt_token1]; ACTIONS 3206 [aux_sym__literalInt_token2;
   aux_sym__literalInt_token3]; ACTIONS 3204 [aux_sym__literalFloat_token1];
   ACTIONS 3208 [sym_kAdd; sym_kSub]; ACTIONS 3210 [sym_kAt]; ACTIONS 3212 [sym_kTrue;
   sym_kFalse]; ACTIONS 3214 [sym_labelNumber]; ACTIONS 3 [sym__space];
   ACTIONS 5 [sym_ppDirective]; ACTIONS 3 [sym_comment]; ACTIONS 3212 [sym_ppFragmentExpr];
   ACTIONS 3200 [sym__literalStringMultiline]; ACTIONS 3216 [sym_identifier];
   ACTIONS 3218 [sym_kSpecialize]; ACTIONS 3220 [sym_kAsm]; ACTIONS 3222 [sym_kBegin];
   ACTIONS 3224 [sym_kCase]; ACTIONS 3226 [sym_kConst]; ACTIONS 3290 [sym_kElse; sym_kEnd;
   sym_kFinalization]; ACTIONS 3232 [sym_kFor]; ACTIONS 3234 [sym_kFunction];
   ACTIONS 3236 [sym_kGoto]; ACTIONS 3274 [sym_kIf]; ACTIONS 3290 [sym_kImplementation];
   ACTIONS 3240 [sym_kInherited]; ACTIONS 3290 [sym_kInitialization; sym_kInterface];
   ACTIONS 3212 [sym_kNil]; ACTIONS 3210 [sym_kNot]; ACTIONS 3234 [sym_kProcedure];
   ACTIONS 3242 [sym_kRaise]; ACTIONS 3244 [sym_kRepeat]; ACTIONS 3246 [sym_kString];
   ACTIONS 3248 [sym_kTry]; ACTIONS 3250 [sym_kVar]; ACTIONS 3252 [sym_kWhile];
   ACTIONS 3254 [sym_kWith]].

(** State 487. *)
Definition ts_parse_table_487 : parse_row :=
  [STATE 6213 [sym_if]; STATE 6327 [sym_ifElse; sym_while; sym_repeat; sym_for; sym_foreach;
   sym_try; sym_case; sym_block; sym_asm; sym_with; sym_raise; sym_statement; sym_goto;
   sym__statement]; STATE 15739 [sym_ifTr; sym_ifElseTr; sym_whileTr; sym_repeatTr; sym_forTr;
   sym_foreachTr; sym_tryTr; sym_caseTr]; STATE 14251 [sym_blockTr]; STATE 15739 [sym_asmTr;
   sym_withTr; sym_raiseTr; sym_statementTr; sym_gotoTr; sym__statementTr];
   STATE 13915 [sym_assignment]; STATE 11785 [sym_varAssignDef]; STATE 13915 [sym_varDef;
   sym_constDef]; STATE 6166 [sym_label]; STATE 15739 [sym__statementsTr]; STATE 8019 [sym__expr;
   sym_exprConditional]; STATE 7478 [sym__ref; sym_lambda; sym_inherited; sym_exprDot;
   sym_exprDeref; sym_exprAs; sym_exprTpl; sym_exprSubscript; sym_exprCall];
   STATE 8019 [sym_exprBinary; sym_exprUnary]; STATE 7478 [sym_exprParens; sym_exprBrackets;
   sym__literal; sym_literalString]; STATE 6664 [sym__literalString; sym_literalChar];
   STATE 7478 [sym_literalNumber]; STATE 7742 [sym__literalInt; sym__literalFloat];
   STATE 1380 [sym__ppIf]; STATE 6327 [sym__ppStatementBlock];
   STATE 11840 [aux_sym_labeledStatement_repeat1]; STATE 863 [aux_sym__statementsTr_repeat1];
   STATE 6664 [aux_sym_literalString_repeat1]; ACTIONS 397 [anon_sym_SEMI];
   ACTIONS 399 [anon_sym_LBRACK]; ACTIONS 401 [anon_sym_LPAREN];
   ACTIONS 403 [aux_sym__literalString_token1]; ACTIONS 405 [anon_sym_POUND];
   ACTIONS 407 [aux_sym__literalInt_token1]; ACTIONS 409 [aux_sym__literalInt_token2;
   aux_sym__literalInt_token3]; ACTIONS 407 [aux_sym__literalFloat_token1];
   ACTIONS 411 [aux_sym_ppUsesBlock_token1]; ACTIONS 413 [sym_kAdd; sym_kSub];
   ACTIONS 415 [sym_kAt]; ACTIONS 417 [sym_kTrue; sym_kFalse]; ACTIONS 419 [sym_labelNumber];
   ACTIONS 3 [sym__space]; ACTIONS 5 [sym_ppDirective]; ACTIONS 3 [sym_comment];
   ACTIONS 417 [sym_ppFragmentExpr]; ACTIONS 397 [sym_ppFragmentStmt];
   ACTIONS 403 [sym__literalStringMultiline]; ACTIONS 421 [sym_identifier];
   ACTIONS 423 [sym_kSpecialize]; ACTIONS 427 [sym_kAsm]; ACTIONS 429 [sym_kBegin];
   ACTIONS 431 [sym_kCase]; ACTIONS 433 [sym_kConst]; ACTIONS 3292 [sym_kEnd];
   ACTIONS 437 [sym_kFor]; ACTIONS 439 [sym_kFunction]; ACTIONS 441 [sym_kGoto];
   ACTIONS 443 [sym_kIf]; ACTIONS 445 [sym_kInherited]; ACTIONS 417 [sym_kNil];
   ACTIONS 415 [sym_kNot]; ACTIONS 439 [sym_kProcedure]; ACTIONS 447 [sym_kRaise];
   ACTIONS 449 [sym_kRepeat]; ACTIONS 451 [sym_kString]; ACTIONS 453 [sym_kTry];
   ACTIONS 455 [sym_kVar]; ACTIONS 457 [sym_kWhile]; ACTIONS 459 [sym_kWith]].

(** State 488. *)
Definition ts_parse_table_488 : parse_row :=
  [STATE 5784 [sym_if]; STATE 5698 [sym_ifElse; sym_while; sym_repeat; sym_for; sym_foreach;
   sym_try; sym_case; sym_block; sym_asm; sym_with; sym_raise; sym_statement; sym_goto;
   sym_labeledStatement; sym__statement]; STATE 11552 [sym_ifTr; sym_ifElseTr; sym_whileTr;
   sym_repeatTr; sym_forTr; sym_foreachTr; sym_tryTr; sym_caseTr]; STATE 11564 [sym_blockTr];
   STATE 11552 [sym_asmTr; sym_withTr; sym_raiseTr; sym_statementTr; sym_gotoTr;
   sym_labeledStatementTr; sym__statementTr]; STATE 11443 [sym_assignment];
   STATE 11931 [sym_varAssignDef]; STATE 11443 [sym_varDef; sym_constDef]; STATE 703 [sym_label];
   STATE 7206 [sym__expr; sym_exprConditional]; STATE 6884 [sym__ref; sym_lambda; sym_inherited;
   sym_exprDot; sym_exprDeref; sym_exprAs; sym_exprTpl; sym_exprSubscript; sym_exprCall];
   STATE 7206 [sym_exprBinary; sym_exprUnary]; STATE 6884 [sym_exprParens; sym_exprBrackets;
   sym__literal; sym_literalString]; STATE 5959 [sym__literalString; sym_literalChar];
   STATE 6884 [sym_literalNumber]; STATE 6992 [sym__literalInt; sym__literalFloat];
   STATE 5959 [aux_sym_literalString_repeat1]; ACTIONS 3294 [anon_sym_SEMI];
   ACTIONS 3196 [anon_sym_LBRACK]; ACTIONS 3198 [anon_sym_LPAREN];
   ACTIONS 3200 [aux_sym__literalString_token1]; ACTIONS 3202 [anon_sym_POUND];
   ACTIONS 3204 [aux_sym__literalInt_token1]; ACTIONS 3206 [aux_sym__literalInt_token2;
   aux_sym__literalInt_token3]; ACTIONS 3204 [aux_sym__literalFloat_token1];
   ACTIONS 3208 [sym_kAdd; sym_kSub]; ACTIONS 3210 [sym_kAt]; ACTIONS 3212 [sym_kTrue;
   sym_kFalse]; ACTIONS 3214 [sym_labelNumber]; ACTIONS 3 [sym__space];
   ACTIONS 5 [sym_ppDirective]; ACTIONS 3 [sym_comment]; ACTIONS 3212 [sym_ppFragmentExpr];
   ACTIONS 3200 [sym__literalStringMultiline]; ACTIONS 3216 [sym_identifier];
   ACTIONS 3218 [sym_kSpecialize]; ACTIONS 3220 [sym_kAsm]; ACTIONS 3222 [sym_kBegin];
   ACTIONS 3224 [sym_kCase]; ACTIONS 3226 [sym_kConst]; ACTIONS 3296 [sym_kElse; sym_kEnd;
   sym_kFinalization]; ACTIONS 3232 [sym_kFor]; ACTIONS 3234 [sym_kFunction];
   ACTIONS 3236 [sym_kGoto]; ACTIONS 3274 [sym_kIf]; ACTIONS 3296 [sym_kImplementation];
   ACTIONS 3240 [sym_kInherited]; ACTIONS 3296 [sym_kInitialization; sym_kInterface];
   ACTIONS 3212 [sym_kNil]; ACTIONS 3210 [sym_kNot]; ACTIONS 3234 [sym_kProcedure];
   ACTIONS 3242 [sym_kRaise]; ACTIONS 3244 [sym_kRepeat]; ACTIONS 3246 [sym_kString];
   ACTIONS 3248 [sym_kTry]; ACTIONS 3250 [sym_kVar]; ACTIONS 3252 [sym_kWhile];
   ACTIONS 3254 [sym_kWith]].

(** State 489. *)
Definition ts_parse_table_489 : parse_row :=
  [STATE 6213 [sym_if]; STATE 6327 [sym_ifElse; sym_while; sym_repeat; sym_for; sym_foreach;
   sym_try; sym_case; sym_block; sym_asm; sym_with; sym_raise; sym_statement; sym_goto;
   sym__statement]; STATE 15785 [sym_ifTr; sym_ifElseTr; sym_whileTr; sym_repeatTr; sym_forTr;
   sym_foreachTr; sym_tryTr; sym_caseTr]; STATE 14251 [sym_blockTr]; STATE 15785 [sym_asmTr;
   sym_withTr; sym_raiseTr; sym_statementTr; sym_gotoTr; sym__statementTr];
   STATE 13915 [sym_assignment]; STATE 11785 [sym_varAssignDef]; STATE 13915 [sym_varDef;
   sym_constDef]; STATE 6166 [sym_label]; STATE 15785 [sym__statementsTr]; STATE 8019 [sym__expr;
   sym_exprConditional]; STATE 7478 [sym__ref; sym_lambda; sym_inherited; sym_exprDot;
   sym_exprDeref; sym_exprAs; sym_exprTpl; sym_exprSubscript; sym_exprCall];
   STATE 8019 [sym_exprBinary; sym_exprUnary]; STATE 7478 [sym_exprParens; sym_exprBrackets;
   sym__literal; sym_literalString]; STATE 6664 [sym__literalString; sym_literalChar];
   STATE 7478 [sym_literalNumber]; STATE 7742 [sym__literalInt; sym__literalFloat];
   STATE 1380 [sym__ppIf]; STATE 6327 [sym__ppStatementBlock];
   STATE 11840 [aux_sym_labeledStatement_repeat1]; STATE 863 [aux_sym__statementsTr_repeat1];
   STATE 6664 [aux_sym_literalString_repeat1]; ACTIONS 397 [anon_sym_SEMI];
   ACTIONS 399 [anon_sym_LBRACK]; ACTIONS 401 [anon_sym_LPAREN];
   ACTIONS 403 [aux_sym__literalString_token1]; ACTIONS 405 [anon_sym_POUND];
   ACTIONS 407 [aux_sym__literalInt_token1]; ACTIONS 409 [aux_sym__literalInt_token2;
   aux_sym__literalInt_token3]; ACTIONS 407 [aux_sym__literalFloat_token1];
   ACTIONS 411 [aux_sym_ppUsesBlock_token1]; ACTIONS 413 [sym_kAdd; sym_kSub];
   ACTIONS 415 [sym_kAt]; ACTIONS 417 [sym_kTrue; sym_kFalse]; ACTIONS 419 [sym_labelNumber];
   ACTIONS 3 [sym__space]; ACTIONS 5 [sym_ppDirective]; ACTIONS 3 [sym_comment];
   ACTIONS 417 [sym_ppFragmentExpr]; ACTIONS 397 [sym_ppFragmentStmt];
   ACTIONS 403 [sym__literalStringMultiline]; ACTIONS 421 [sym_identifier];
   ACTIONS 423 [sym_kSpecialize]; ACTIONS 427 [sym_kAsm]; ACTIONS 429 [sym_kBegin];
   ACTIONS 431 [sym_kCase]; ACTIONS 433 [sym_kConst]; ACTIONS 3298 [sym_kEnd];
   ACTIONS 437 [sym_kFor]; ACTIONS 439 [sym_kFunction]; ACTIONS 441 [sym_kGoto];
   ACTIONS 443 [sym_kIf]; ACTIONS 445 [sym_kInherited]; ACTIONS 417 [sym_kNil];
   ACTIONS 415 [sym_kNot]; ACTIONS 439 [sym_kProcedure]; ACTIONS 447 [sym_kRaise];
   ACTIONS 449 [sym_kRepeat]; ACTIONS 451 [sym_kString]; ACTIONS 453 [sym_kTry];
   ACTIONS 455 [sym_kVar]; ACTIONS 457 [sym_kWhile]; ACTIONS 459 [sym_kWith]].

(** State 490. *)
Definition ts_parse_table_490 : parse_row :=
  [STATE 6213 [sym_if]; STATE 6327 [sym_ifElse; sym_while; sym_repeat; sym_for; sym_foreach;
   sym_try; sym_case; sym_block; sym_asm; sym_with; sym_raise; sym_statement; sym_goto;
   sym__statement]; STATE 15796 [sym_ifTr; sym_ifElseTr; sym_whileTr; sym_repeatTr; sym_forTr;
   sym_foreachTr; sym_tryTr; sym_caseTr]; STATE 14251 [sym_blockTr]; STATE 15796 [sym_asmTr;
   sym_withTr; sym_raiseTr; sym_statementTr; sym_gotoTr; sym__statementTr];
   STATE 13915 [sym_assignment]; STATE 11785 [sym_varAssignDef]; STATE 13915 [sym_varDef;
   sym_constDef]; STATE 6166 [sym_label]; STATE 15796 [sym__statementsTr]; STATE 8019 [sym__expr;
   sym_exprConditional]; STATE 7478 [sym__ref; sym_lambda; sym_inherited; sym_exprDot;
   sym_exprDeref; sym_exprAs; sym_exprTpl; sym_exprSubscript; sym_exprCall];
   STATE 8019 [sym_exprBinary; sym_exprUnary]; STATE 7478 [sym_exprParens; sym_exprBrackets;
   sym__literal; sym_literalString]; STATE 6664 [sym__literalString; sym_literalChar];
   STATE 7478 [sym_literalNumber]; STATE 7742 [sym__literalInt; sym__literalFloat];
   STATE 1380 [sym__ppIf]; STATE 6327 [sym__ppStatementBlock];
   STATE 11840 [aux_sym_labeledStatement_repeat1]; STATE 863 [aux_sym__statementsTr_repeat1];
   STATE 6664 [aux_sym_literalString_repeat1]; ACTIONS 397 [anon_sym_SEMI];
   ACTIONS 399 [anon_sym_LBRACK]; ACTIONS 401 [anon_sym_LPAREN];
   ACTIONS 403 [aux_sym__literalString_token1]; ACTIONS 405 [anon_sym_POUND];
   ACTIONS 407 [aux_sym__literalInt_token1]; ACTIONS 409 [aux_sym__literalInt_token2;
   aux_sym__literalInt_token3]; ACTIONS 407 [aux_sym__literalFloat_token1];
   ACTIONS 411 [aux_sym_ppUsesBlock_token1]; ACTIONS 413 [sym_kAdd; sym_kSub];
   ACTIONS 415 [sym_kAt]; ACTIONS 417 [sym_kTrue; sym_kFalse]; ACTIONS 419 [sym_labelNumber];
   ACTIONS 3 [sym__space]; ACTIONS 5 [sym_ppDirective]; ACTIONS 3 [sym_comment];
   ACTIONS 417 [sym_ppFragmentExpr]; ACTIONS 397 [sym_ppFragmentStmt];
   ACTIONS 403 [sym__literalStringMultiline]; ACTIONS 421 [sym_identifier];
   ACTIONS 423 [sym_kSpecialize]; ACTIONS 427 [sym_kAsm]; ACTIONS 429 [sym_kBegin];
   ACTIONS 431 [sym_kCase]; ACTIONS 433 [sym_kConst]; ACTIONS 3300 [sym_kEnd];
   ACTIONS 437 [sym_kFor]; ACTIONS 439 [sym_kFunction]; ACTIONS 441 [sym_kGoto];
   ACTIONS 443 [sym_kIf]; ACTIONS 445 [sym_kInherited]; ACTIONS 417 [sym_kNil];
   ACTIONS 415 [sym_kNot]; ACTIONS 439 [sym_kProcedure]; ACTIONS 447 [sym_kRaise];
   ACTIONS 449 [sym_kRepeat]; ACTIONS 451 [sym_kString]; ACTIONS 453 [sym_kTry];
   ACTIONS 455 [sym_kVar]; ACTIONS 457 [sym_kWhile]; ACTIONS 459 [sym_kWith]].

(** State 491. *)
Definition ts_parse_table_491 : parse_row :=
  [STATE 5784 [sym_if]; STATE 5704 [sym_ifElse; sym_while; sym_repeat; sym_for; sym_foreach;
   sym_try; sym_case; sym_block; sym_asm; sym_with; sym_raise; sym_statement; sym_goto;
   sym_labeledStatement; sym__statement]; STATE 11554 [sym_ifTr; sym_ifElseTr; sym_whileTr;
   sym_repeatTr; sym_forTr; sym_foreachTr; sym_tryTr; sym_caseTr]; STATE 11564 [sym_blockTr];
   STATE 11554 [sym_asmTr; sym_withTr; sym_raiseTr; sym_statementTr; sym_gotoTr;
   sym_labeledStatementTr; sym__statementTr]; STATE 11443 [sym_assignment];
   STATE 11931 [sym_varAssignDef]; STATE 11443 [sym_varDef; sym_constDef]; STATE 703 [sym_label];
   STATE 7206 [sym__expr; sym_exprConditional]; STATE 6884 [sym__ref; sym_lambda; sym_inherited;
   sym_exprDot; sym_exprDeref; sym_exprAs; sym_exprTpl; sym_exprSubscript; sym_exprCall];
   STATE 7206 [sym_exprBinary; sym_exprUnary]; STATE 6884 [sym_exprParens; sym_exprBrackets;
   sym__literal; sym_literalString]; STATE 5959 [sym__literalString; sym_literalChar];
   STATE 6884 [sym_literalNumber]; STATE 6992 [sym__literalInt; sym__literalFloat];
   STATE 5959 [aux_sym_literalString_repeat1]; ACTIONS 3302 [anon_sym_SEMI];
   ACTIONS 3196 [anon_sym_LBRACK]; ACTIONS 3198 [anon_sym_LPAREN];
   ACTIONS 3200 [aux_sym__literalString_token1]; ACTIONS 3202 [anon_sym_POUND];
   ACTIONS 3204 [aux_sym__literalInt_token1]; ACTIONS 3206 [aux_sym__literalInt_token2;
   aux_sym__literalInt_token3]; ACTIONS 3204 [aux_sym__literalFloat_token1];
   ACTIONS 3208 [sym_kAdd; sym_kSub]; ACTIONS 3210 [sym_kAt]; ACTIONS 3212 [sym_kTrue;
   sym_kFalse]; ACTIONS 3214 [sym_labelNumber]; ACTIONS 3 [sym__space];
   ACTIONS 5 [sym_ppDirective]; ACTIONS 3 [sym_comment]; ACTIONS 3212 [sym_ppFragmentExpr];
   ACTIONS 3200 [sym__literalStringMultiline]; ACTIONS 3216 [sym_identifier];
   ACTIONS 3218 [sym_kSpecialize]; ACTIONS 3220 [sym_kAsm]; ACTIONS 3222 [sym_kBegin];
   ACTIONS 3224 [sym_kCase]; ACTIONS 3226 [sym_kConst]; ACTIONS 3304 [sym_kElse; sym_kEnd;
   sym_kFinalization]; ACTIONS 3232 [sym_kFor]; ACTIONS 3234 [sym_kFunction];
   ACTIONS 3236 [sym_kGoto]; ACTIONS 3274 [sym_kIf]; ACTIONS 3304 [sym_kImplementation];
   ACTIONS 3240 [sym_kInherited]; ACTIONS 3304 [sym_kInitialization; sym_kInterface];
   ACTIONS 3212 [sym_kNil]; ACTIONS 3210 [sym_kNot]; ACTIONS 3234 [sym_kProcedure];
   ACTIONS 3242 [sym_kRaise]; ACTIONS 3244 [sym_kRepeat]; ACTIONS 3246 [sym_kString];
   ACTIONS 3248 [sym_kTry]; ACTIONS 3250 [sym_kVar]; ACTIONS 3252 [sym_kWhile];
   ACTIONS 3254 [sym_kWith]].

(** State 492. *)
Definition ts_parse_table_492 : parse_row :=
  [STATE 5604 [sym_if]; STATE 5626 [sym_ifElse; sym_while; sym_repeat; sym_for; sym_foreach;
   sym_try; sym_case; sym_block; sym_asm; sym_with; sym_raise; sym_statement; sym_goto;
   sym_labeledStatement; sym__statement]; STATE 11558 [sym_ifTr; sym_ifElseTr; sym_whileTr;
   sym_repeatTr; sym_forTr; sym_foreachTr; sym_tryTr; sym_caseTr]; STATE 11564 [sym_blockTr];
   STATE 11558 [sym_asmTr; sym_withTr; sym_raiseTr; sym_statementTr; sym_gotoTr;
   sym_labeledStatementTr; sym__statementTr]; STATE 11516 [sym_assignment];
   STATE 11931 [sym_varAssignDef]; STATE 11516 [sym_varDef; sym_constDef]; STATE 758 [sym_label];
   STATE 7221 [sym__expr; sym_exprConditional]; STATE 6884 [sym__ref; sym_lambda; sym_inherited;
   sym_exprDot; sym_exprDeref; sym_exprAs; sym_exprTpl; sym_exprSubscript; sym_exprCall];
   STATE 7221 [sym_exprBinary; sym_exprUnary]; STATE 6884 [sym_exprParens; sym_exprBrackets;
   sym__literal; sym_literalString]; STATE 5959 [sym__literalString; sym_literalChar];
   STATE 6884 [sym_literalNumber]; STATE 6992 [sym__literalInt; sym__literalFloat];
   STATE 5959 [aux_sym_literalString_repeat1]; ACTIONS 3306 [anon_sym_SEMI];
   ACTIONS 3196 [anon_sym_LBRACK]; ACTIONS 3198 [anon_sym_LPAREN];
   ACTIONS 3200 [aux_sym__literalString_token1]; ACTIONS 3202 [anon_sym_POUND];
   ACTIONS 3204 [aux_sym__literalInt_token1]; ACTIONS 3206 [aux_sym__literalInt_token2;
   aux_sym__literalInt_token3]; ACTIONS 3204 [aux_sym__literalFloat_token1];
   ACTIONS 3208 [sym_kAdd; sym_kSub]; ACTIONS 3210 [sym_kAt]; ACTIONS 3212 [sym_kTrue;
   sym_kFalse]; ACTIONS 3214 [sym_labelNumber]; ACTIONS 3 [sym__space];
   ACTIONS 5 [sym_ppDirective]; ACTIONS 3 [sym_comment]; ACTIONS 3212 [sym_ppFragmentExpr];
   ACTIONS 3200 [sym__literalStringMultiline]; ACTIONS 3216 [sym_identifier];
   ACTIONS 3218 [sym_kSpecialize]; ACTIONS 3308 [sym_kAsm]; ACTIONS 3310 [sym_kBegin];
   ACTIONS 3312 [sym_kCase]; ACTIONS 3226 [sym_kConst]; ACTIONS 3272 [sym_kElse; sym_kEnd;
   sym_kFinalization]; ACTIONS 3314 [sym_kFor]; ACTIONS 3234 [sym_kFunction];
   ACTIONS 3316 [sym_kGoto]; ACTIONS 3318 [sym_kIf]; ACTIONS 3272 [sym_kImplementation];
   ACTIONS 3240 [sym_kInherited]; ACTIONS 3272 [sym_kInitialization; sym_kInterface];
   ACTIONS 3212 [sym_kNil]; ACTIONS 3210 [sym_kNot]; ACTIONS 3234 [sym_kProcedure];
   ACTIONS 3320 [sym_kRaise]; ACTIONS 3322 [sym_kRepeat]; ACTIONS 3246 [sym_kString];
   ACTIONS 3324 [sym_kTry]; ACTIONS 3250 [sym_kVar]; ACTIONS 3326 [sym_kWhile];
   ACTIONS 3328 [sym_kWith]].

(** State 493. *)
Definition ts_parse_table_493 : parse_row :=
  [STATE 5604 [sym_if]; STATE 5627 [sym_ifElse; sym_while; sym_repeat; sym_for; sym_foreach;
   sym_try; sym_case; sym_block; sym_asm; sym_with; sym_raise; sym_statement; sym_goto;
   sym_labeledStatement; sym__statement]; STATE 11563 [sym_ifTr; sym_ifElseTr; sym_whileTr;
   sym_repeatTr; sym_forTr; sym_foreachTr; sym_tryTr; sym_caseTr]; STATE 11564 [sym_blockTr];
   STATE 11563 [sym_asmTr; sym_withTr; sym_raiseTr; sym_statementTr; sym_gotoTr;
   sym_labeledStatementTr; sym__statementTr]; STATE 11516 [sym_assignment];
   STATE 11931 [sym_varAssignDef]; STATE 11516 [sym_varDef; sym_constDef]; STATE 758 [sym_label];
   STATE 7221 [sym__expr; sym_exprConditional]; STATE 6884 [sym__ref; sym_lambda; sym_inherited;
   sym_exprDot; sym_exprDeref; sym_exprAs; sym_exprTpl; sym_exprSubscript; sym_exprCall];
   STATE 7221 [sym_exprBinary; sym_exprUnary]; STATE 6884 [sym_exprParens; sym_exprBrackets;
   sym__literal; sym_literalString]; STATE 5959 [sym__literalString; sym_literalChar];
   STATE 6884 [sym_literalNumber]; STATE 6992 [sym__literalInt; sym__literalFloat];
   STATE 5959 [aux_sym_literalString_repeat1]; ACTIONS 3330 [anon_sym_SEMI];
   ACTIONS 3196 [anon_sym_LBRACK]; ACTIONS 3198 [anon_sym_LPAREN];
   ACTIONS 3200 [aux_sym__literalString_token1]; ACTIONS 3202 [anon_sym_POUND];
   ACTIONS 3204 [aux_sym__literalInt_token1]; ACTIONS 3206 [aux_sym__literalInt_token2;
   aux_sym__literalInt_token3]; ACTIONS 3204 [aux_sym__literalFloat_token1];
   ACTIONS 3208 [sym_kAdd; sym_kSub]; ACTIONS 3210 [sym_kAt]; ACTIONS 3212 [sym_kTrue;
   sym_kFalse]; ACTIONS 3214 [sym_labelNumber]; ACTIONS 3 [sym__space];
   ACTIONS 5 [sym_ppDirective]; ACTIONS 3 [sym_comment]; ACTIONS 3212 [sym_ppFragmentExpr];
   ACTIONS 3200 [sym__literalStringMultiline]; ACTIONS 3216 [sym_identifier];
   ACTIONS 3218 [sym_kSpecialize]; ACTIONS 3308 [sym_kAsm]; ACTIONS 3310 [sym_kBegin];
   ACTIONS 3312 [sym_kCase]; ACTIONS 3226 [sym_kConst]; ACTIONS 3278 [sym_kElse; sym_kEnd;
   sym_kFinalization]; ACTIONS 3314 [sym_kFor]; ACTIONS 3234 [sym_kFunction];
   ACTIONS 3316 [sym_kGoto]; ACTIONS 3318 [sym_kIf]; ACTIONS 3278 [sym_kImplementation];
   ACTIONS 3240 [sym_kInherited]; ACTIONS 3278 [sym_kInitialization; sym_kInterface];
   ACTIONS 3212 [sym_kNil]; ACTIONS 3210 [sym_kNot]; ACTIONS 3234 [sym_kProcedure];
   ACTIONS 3320 [sym_kRaise]; ACTIONS 3322 [sym_kRepeat]; ACTIONS 3246 [sym_kString];
   ACTIONS 3324 [sym_kTry]; ACTIONS 3250 [sym_kVar]; ACTIONS 3326 [sym_kWhile];
   ACTIONS 3328 [sym_kWith]].

(** State 494. *)
Definition ts_parse_table_494 : parse_row :=
  [STATE 5604 [sym_if]; STATE 5632 [sym_ifElse; sym_while; sym_repeat; sym_for; sym_foreach;
   sym_try; sym_case; sym_block; sym_asm; sym_with; sym_raise; sym_statement; sym_goto;
   sym_labeledStatement; sym__statement]; STATE 11581 [sym_ifTr; sym_ifElseTr; sym_whileTr;
   sym_repeatTr; sym_forTr; sym_foreachTr; sym_tryTr; sym_caseTr]; STATE 11564 [sym_blockTr];
   STATE 11581 [sym_asmTr; sym_withTr; sym_raiseTr; sym_statementTr; sym_gotoTr;
   sym_labeledStatementTr; sym__statementTr]; STATE 11516 [sym_assignment];
   STATE 11931 [sym_varAssignDef]; STATE 11516 [sym_varDef; sym_constDef]; STATE 758 [sym_label];
   STATE 7221 [sym__expr; sym_exprConditional]; STATE 6884 [sym__ref; sym_lambda; sym_inherited;
   sym_exprDot; sym_exprDeref; sym_exprAs; sym_exprTpl; sym_exprSubscript; sym_exprCall];
   STATE 7221 [sym_exprBinary; sym_exprUnary]; STATE 6884 [sym_exprParens; sym_exprBrackets;
   sym__literal; sym_literalString]; STATE 5959 [sym__literalString; sym_literalChar];
   STATE 6884 [sym_literalNumber]; STATE 6992 [sym__literalInt; sym__literalFloat];
   STATE 5959 [aux_sym_literalString_repeat1]; ACTIONS 3332 [anon_sym_SEMI];
   ACTIONS 3196 [anon_sym_LBRACK]; ACTIONS 3198 [anon_sym_LPAREN];
   ACTIONS 3200 [aux_sym__literalString_token1]; ACTIONS 3202 [anon_sym_POUND];
   ACTIONS 3204 [aux_sym__literalInt_token1]; ACTIONS 3206 [aux_sym__literalInt_token2;
   aux_sym__literalInt_token3]; ACTIONS 3204 [aux_sym__literalFloat_token1];
   ACTIONS 3208 [sym_kAdd; sym_kSub]; ACTIONS 3210 [sym_kAt]; ACTIONS 3212 [sym_kTrue;
   sym_kFalse]; ACTIONS 3214 [sym_labelNumber]; ACTIONS 3 [sym__space];
   ACTIONS 5 [sym_ppDirective]; ACTIONS 3 [sym_comment]; ACTIONS 3212 [sym_ppFragmentExpr];
   ACTIONS 3200 [sym__literalStringMultiline]; ACTIONS 3216 [sym_identifier];
   ACTIONS 3218 [sym_kSpecialize]; ACTIONS 3308 [sym_kAsm]; ACTIONS 3310 [sym_kBegin];
   ACTIONS 3312 [sym_kCase]; ACTIONS 3226 [sym_kConst]; ACTIONS 3282 [sym_kElse; sym_kEnd;
   sym_kFinalization]; ACTIONS 3314 [sym_kFor]; ACTIONS 3234 [sym_kFunction];
   ACTIONS 3316 [sym_kGoto]; ACTIONS 3318 [sym_kIf]; ACTIONS 3282 [sym_kImplementation];
   ACTIONS 3240 [sym_kInherited]; ACTIONS 3282 [sym_kInitialization; sym_kInterface];
   ACTIONS 3212 [sym_kNil]; ACTIONS 3210 [sym_kNot]; ACTIONS 3234 [sym_kProcedure];
   ACTIONS 3320 [sym_kRaise]; ACTIONS 3322 [sym_kRepeat]; ACTIONS 3246 [sym_kString];
   ACTIONS 3324 [sym_kTry]; ACTIONS 3250 [sym_kVar]; ACTIONS 3326 [sym_kWhile];
   ACTIONS 3328 [sym_kWith]].

(** State 495. *)
Definition ts_parse_table_495 : parse_row :=
  [STATE 6213 [sym_if]; STATE 6327 [sym_ifElse; sym_while; sym_repeat; sym_for; sym_foreach;
   sym_try; sym_case; sym_block; sym_asm; sym_with; sym_raise; sym_statement; sym_goto;
   sym__statement]; STATE 14157 [sym_ifTr; sym_ifElseTr; sym_whileTr; sym_repeatTr; sym_forTr;
   sym_foreachTr; sym_tryTr; sym_caseTr]; STATE 14251 [sym_blockTr]; STATE 14157 [sym_asmTr;
   sym_withTr; sym_raiseTr; sym_statementTr; sym_gotoTr; sym__statementTr];
   STATE 13915 [sym_assignment]; STATE 11785 [sym_varAssignDef]; STATE 13915 [sym_varDef;
   sym_constDef]; STATE 6166 [sym_label]; STATE 14157 [sym__statementsTr]; STATE 8019 [sym__expr;
   sym_exprConditional]; STATE 7478 [sym__ref; sym_lambda; sym_inherited; sym_exprDot;
   sym_exprDeref; sym_exprAs; sym_exprTpl; sym_exprSubscript; sym_exprCall];
   STATE 8019 [sym_exprBinary; sym_exprUnary]; STATE 7478 [sym_exprParens; sym_exprBrackets;
   sym__literal; sym_literalString]; STATE 6664 [sym__literalString; sym_literalChar];
   STATE 7478 [sym_literalNumber]; STATE 7742 [sym__literalInt; sym__literalFloat];
   STATE 1380 [sym__ppIf]; STATE 6327 [sym__ppStatementBlock];
   STATE 11840 [aux_sym_labeledStatement_repeat1]; STATE 863 [aux_sym__statementsTr_repeat1];
   STATE 6664 [aux_sym_literalString_repeat1]; ACTIONS 397 [anon_sym_SEMI];
   ACTIONS 399 [anon_sym_LBRACK]; ACTIONS 401 [anon_sym_LPAREN];
   ACTIONS 403 [aux_sym__literalString_token1]; ACTIONS 405 [anon_sym_POUND];
   ACTIONS 407 [aux_sym__literalInt_token1]; ACTIONS 409 [aux_sym__literalInt_token2;
   aux_sym__literalInt_token3]; ACTIONS 407 [aux_sym__literalFloat_token1];
   ACTIONS 411 [aux_sym_ppUsesBlock_token1]; ACTIONS 413 [sym_kAdd; sym_kSub];
   ACTIONS 415 [sym_kAt]; ACTIONS 417 [sym_kTrue; sym_kFalse]; ACTIONS 419 [sym_labelNumber];
   ACTIONS 3 [sym__space]; ACTIONS 5 [sym_ppDirective]; ACTIONS 3 [sym_comment];
   ACTIONS 417 [sym_ppFragmentExpr]; ACTIONS 397 [sym_ppFragmentStmt];
   ACTIONS 403 [sym__literalStringMultiline]; ACTIONS 421 [sym_identifier];
   ACTIONS 423 [sym_kSpecialize]; ACTIONS 427 [sym_kAsm]; ACTIONS 429 [sym_kBegin];
   ACTIONS 431 [sym_kCase]; ACTIONS 433 [sym_kConst]; ACTIONS 2095 [sym_kEnd];
   ACTIONS 437 [sym_kFor]; ACTIONS 439 [sym_kFunction]; ACTIONS 441 [sym_kGoto];
   ACTIONS 443 [sym_kIf]; ACTIONS 445 [sym_kInherited]; ACTIONS 417 [sym_kNil];
   ACTIONS 415 [sym_kNot]; ACTIONS 439 [sym_kProcedure]; ACTIONS 447 [sym_kRaise];
   ACTIONS 449 [sym_kRepeat]; ACTIONS 451 [sym_kString]; ACTIONS 453 [sym_kTry];
   ACTIONS 455 [sym_kVar]; ACTIONS 457 [sym_kWhile]; ACTIONS 459 [sym_kWith]].

(** State 496. *)
Definition ts_parse_table_496 : parse_row :=
  [STATE 6213 [sym_if]; STATE 6327 [sym_ifElse; sym_while; sym_repeat; sym_for; sym_foreach;
   sym_try; sym_case; sym_block; sym_asm; sym_with; sym_raise; sym_statement; sym_goto;
   sym__statement]; STATE 14164 [sym_ifTr; sym_ifElseTr; sym_whileTr; sym_repeatTr; sym_forTr;
   sym_foreachTr; sym_tryTr; sym_caseTr]; STATE 14251 [sym_blockTr]; STATE 14164 [sym_asmTr;
   sym_withTr; sym_raiseTr; sym_statementTr; sym_gotoTr; sym__statementTr];
   STATE 13915 [sym_assignment]; STATE 11785 [sym_varAssignDef]; STATE 13915 [sym_varDef;
   sym_constDef]; STATE 6166 [sym_label]; STATE 14164 [sym__statementsTr]; STATE 8019 [sym__expr;
   sym_exprConditional]; STATE 7478 [sym__ref; sym_lambda; sym_inherited; sym_exprDot;
   sym_exprDeref; sym_exprAs; sym_exprTpl; sym_exprSubscript; sym_exprCall];
   STATE 8019 [sym_exprBinary; sym_exprUnary]; STATE 7478 [sym_exprParens; sym_exprBrackets;
   sym__literal; sym_literalString]; STATE 6664 [sym__literalString; sym_literalChar];
   STATE 7478 [sym_literalNumber]; STATE 7742 [sym__literalInt; sym__literalFloat];
   STATE 1380 [sym__ppIf]; STATE 6327 [sym__ppStatementBlock];
   STATE 11840 [aux_sym_labeledStatement_repeat1]; STATE 863 [aux_sym__statementsTr_repeat1];
   STATE 6664 [aux_sym_literalString_repeat1]; ACTIONS 397 [anon_sym_SEMI];
   ACTIONS 399 [anon_sym_LBRACK]; ACTIONS 401 [anon_sym_LPAREN];
   ACTIONS 403 [aux_sym__literalString_token1]; ACTIONS 405 [anon_sym_POUND];
   ACTIONS 407 [aux_sym__literalInt_token1]; ACTIONS 409 [aux_sym__literalInt_token2;
   aux_sym__literalInt_token3]; ACTIONS 407 [aux_sym__literalFloat_token1];
   ACTIONS 411 [aux_sym_ppUsesBlock_token1]; ACTIONS 413 [sym_kAdd; sym_kSub];
   ACTIONS 415 [sym_kAt]; ACTIONS 417 [sym_kTrue; sym_kFalse]; ACTIONS 419 [sym_labelNumber];
   ACTIONS 3 [sym__space]; ACTIONS 5 [sym_ppDirective]; ACTIONS 3 [sym_comment];
   ACTIONS 417 [sym_ppFragmentExpr]; ACTIONS 397 [sym_ppFragmentStmt];
   ACTIONS 403 [sym__literalStringMultiline]; ACTIONS 421 [sym_identifier];
   ACTIONS 423 [sym_kSpecialize]; ACTIONS 427 [sym_kAsm]; ACTIONS 429 [sym_kBegin];
   ACTIONS 431 [sym_kCase]; ACTIONS 433 [sym_kConst]; ACTIONS 2099 [sym_kEnd];
   ACTIONS 437 [sym_kFor]; ACTIONS 439 [sym_kFunction]; ACTIONS 441 [sym_kGoto];
   ACTIONS 443 [sym_kIf]; ACTIONS 445 [sym_kInherited]; ACTIONS 417 [sym_kNil];
   ACTIONS 415 [sym_kNot]; ACTIONS 439 [sym_kProcedure]; ACTIONS 447 [sym_kRaise];
   ACTIONS 449 [sym_kRepeat]; ACTIONS 451 [sym_kString]; ACTIONS 453 [sym_kTry];
   ACTIONS 455 [sym_kVar]; ACTIONS 457 [sym_kWhile]; ACTIONS 459 [sym_kWith]].

(** State 497. *)
Definition ts_parse_table_497 : parse_row :=
  [STATE 5604 [sym_if]; STATE 5644 [sym_ifElse; sym_while; sym_repeat; sym_for; sym_foreach;
   sym_try; sym_case; sym_block; sym_asm; sym_with; sym_raise; sym_statement; sym_goto];
   STATE 5643 [sym_labeledStatement]; STATE 5644 [sym__statement]; STATE 11591 [sym_ifTr;
   sym_ifElseTr; sym_whileTr; sym_repeatTr; sym_forTr; sym_foreachTr; sym_tryTr; sym_caseTr];
   STATE 11564 [sym_blockTr]; STATE 11591 [sym_asmTr; sym_withTr; sym_raiseTr; sym_statementTr;
   sym_gotoTr]; STATE 11586 [sym_labeledStatementTr]; STATE 11591 [sym__statementTr];
   STATE 11516 [sym_assignment]; STATE 11931 [sym_varAssignDef]; STATE 11516 [sym_varDef;
   sym_constDef]; STATE 758 [sym_label]; STATE 7221 [sym__expr; sym_exprConditional];
   STATE 6884 [sym__ref; sym_lambda; sym_inherited; sym_exprDot; sym_exprDeref; sym_exprAs;
   sym_exprTpl; sym_exprSubscript; sym_exprCall]; STATE 7221 [sym_exprBinary; sym_exprUnary];
   STATE 6884 [sym_exprParens; sym_exprBrackets; sym__literal; sym_literalString];
   STATE 5959 [sym__literalString; sym_literalChar]; STATE 6884 [sym_literalNumber];
   STATE 6992 [sym__literalInt; sym__literalFloat]; STATE 5959 [aux_sym_literalString_repeat1];
   ACTIONS 3334 [anon_sym_SEMI]; ACTIONS 3196 [anon_sym_LBRACK]; ACTIONS 3198 [anon_sym_LPAREN];
   ACTIONS 3200 [aux_sym__literalString_token1]; ACTIONS 3202 [anon_sym_POUND];
   ACTIONS 3204 [aux_sym__literalInt_token1]; ACTIONS 3206 [aux_sym__literalInt_token2;
   aux_sym__literalInt_token3]; ACTIONS 3204 [aux_sym__literalFloat_token1];
   ACTIONS 3208 [sym_kAdd; sym_kSub]; ACTIONS 3210 [sym_kAt]; ACTIONS 3212 [sym_kTrue;
   sym_kFalse]; ACTIONS 3214 [sym_labelNumber]; ACTIONS 3 [sym__space];
   ACTIONS 5 [sym_ppDirective]; ACTIONS 3 [sym_comment]; ACTIONS 3212 [sym_ppFragmentExpr];
   ACTIONS 3200 [sym__literalStringMultiline]; ACTIONS 3216 [sym_identifier];
   ACTIONS 3218 [sym_kSpecialize]; ACTIONS 3308 [sym_kAsm]; ACTIONS 3310 [sym_kBegin];
   ACTIONS 3312 [sym_kCase]; ACTIONS 3226 [sym_kConst]; ACTIONS 3286 [sym_kElse; sym_kEnd;
   sym_kFinalization]; ACTIONS 3314 [sym_kFor]; ACTIONS 3234 [sym_kFunction];
   ACTIONS 3316 [sym_kGoto]; ACTIONS 3318 [sym_kIf]; ACTIONS 3286 [sym_kImplementation];
   ACTIONS 3240 [sym_kInherited]; ACTIONS 3286 [sym_kInitialization; sym_kInterface];
   ACTIONS 3212 [sym_kNil]; ACTIONS 3210 [sym_kNot]; ACTIONS 3234 [sym_kProcedure];
   ACTIONS 3320 [sym_kRaise]; ACTIONS 3322 [sym_kRepeat]; ACTIONS 3246 [sym_kString];
   ACTIONS 3324 [sym_kTry]; ACTIONS 3250 [sym_kVar]; ACTIONS 3326 [sym_kWhile];
   ACTIONS 3328 [sym_kWith]].

(** State 498. *)
Definition ts_parse_table_498 : parse_row :=
  [STATE 6213 [sym_if]; STATE 6327 [sym_ifElse; sym_while; sym_repeat; sym_for; sym_foreach;
   sym_try; sym_case; sym_block; sym_asm; sym_with; sym_raise; sym_statement; sym_goto;
   sym__statement]; STATE 14166 [sym_ifTr; sym_ifElseTr; sym_whileTr; sym_repeatTr; sym_forTr;
   sym_foreachTr; sym_tryTr; sym_caseTr]; STATE 14251 [sym_blockTr]; STATE 14166 [sym_asmTr;
   sym_withTr; sym_raiseTr; sym_statementTr; sym_gotoTr; sym__statementTr];
   STATE 13915 [sym_assignment]; STATE 11785 [sym_varAssignDef]; STATE 13915 [sym_varDef;
   sym_constDef]; STATE 6166 [sym_label]; STATE 14166 [sym__statementsTr]; STATE 8019 [sym__expr;
   sym_exprConditional]; STATE 7478 [sym__ref; sym_lambda; sym_inherited; sym_exprDot;
   sym_exprDeref; sym_exprAs; sym_exprTpl; sym_exprSubscript; sym_exprCall];
   STATE 8019 [sym_exprBinary; sym_exprUnary]; STATE 7478 [sym_exprParens; sym_exprBrackets;
   sym__literal; sym_literalString]; STATE 6664 [sym__literalString; sym_literalChar];
   STATE 7478 [sym_literalNumber]; STATE 7742 [sym__literalInt; sym__literalFloat];
   STATE 1380 [sym__ppIf]; STATE 6327 [sym__ppStatementBlock];
   STATE 11840 [aux_sym_labeledStatement_repeat1]; STATE 863 [aux_sym__statementsTr_repeat1];
   STATE 6664 [aux_sym_literalString_repeat1]; ACTIONS 397 [anon_sym_SEMI];
   ACTIONS 399 [anon_sym_LBRACK]; ACTIONS 401 [anon_sym_LPAREN];
   ACTIONS 403 [aux_sym__literalString_token1]; ACTIONS 405 [anon_sym_POUND];
   ACTIONS 407 [aux_sym__literalInt_token1]; ACTIONS 409 [aux_sym__literalInt_token2;
   aux_sym__literalInt_token3]; ACTIONS 407 [aux_sym__literalFloat_token1];
   ACTIONS 411 [aux_sym_ppUsesBlock_token1]; ACTIONS 413 [sym_kAdd; sym_kSub];
   ACTIONS 415 [sym_kAt]; ACTIONS 417 [sym_kTrue; sym_kFalse]; ACTIONS 419 [sym_labelNumber];
   ACTIONS 3 [sym__space]; ACTIONS 5 [sym_ppDirective]; ACTIONS 3 [sym_comment];
   ACTIONS 417 [sym_ppFragmentExpr]; ACTIONS 397 [sym_ppFragmentStmt];
   ACTIONS 403 [sym__literalStringMultiline]; ACTIONS 421 [sym_identifier];
   ACTIONS 423 [sym_kSpecialize]; ACTIONS 427 [sym_kAsm]; ACTIONS 429 [sym_kBegin];
   ACTIONS 431 [sym_kCase]; ACTIONS 433 [sym_kConst]; ACTIONS 3336 [sym_kEnd];
   ACTIONS 437 [sym_kFor]; ACTIONS 439 [sym_kFunction]; ACTIONS 441 [sym_kGoto];
   ACTIONS 443 [sym_kIf]; ACTIONS 445 [sym_kInherited]; ACTIONS 417 [sym_kNil];
   ACTIONS 415 [sym_kNot]; ACTIONS 439 [sym_kProcedure]; ACTIONS 447 [sym_kRaise];
   ACTIONS 449 [sym_kRepeat]; ACTIONS 451 [sym_kString]; ACTIONS 453 [sym_kTry];
   ACTIONS 455 [sym_kVar]; ACTIONS 457 [sym_kWhile]; ACTIONS 459 [sym_kWith]].

(** State 499. *)
Definition ts_parse_table_499 : parse_row :=
  [STATE 5604 [sym_if]; STATE 5646 [sym_ifElse; sym_while; sym_repeat; sym_for; sym_foreach;
   sym_try; sym_case; sym_block; sym_asm; sym_with; sym_raise; sym_statement; sym_goto;
   sym_labeledStatement; sym__statement]; STATE 11547 [sym_ifTr; sym_ifElseTr; sym_whileTr;
   sym_repeatTr; sym_forTr; sym_foreachTr; sym_tryTr; sym_caseTr]; STATE 11564 [sym_blockTr];
   STATE 11547 [sym_asmTr; sym_withTr; sym_raiseTr; sym_statementTr; sym_gotoTr;
   sym_labeledStatementTr; sym__statementTr]; STATE 11516 [sym_assignment];
   STATE 11931 [sym_varAssignDef]; STATE 11516 [sym_varDef; sym_constDef]; STATE 758 [sym_label];
   STATE 7221 [sym__expr; sym_exprConditional]; STATE 6884 [sym__ref; sym_lambda; sym_inherited;
   sym_exprDot; sym_exprDeref; sym_exprAs; sym_exprTpl; sym_exprSubscript; sym_exprCall];
   STATE 7221 [sym_exprBinary; sym_exprUnary]; STATE 6884 [sym_exprParens; sym_exprBrackets;
   sym__literal; sym_literalString]; STATE 5959 [sym__literalString; sym_literalChar];
   STATE 6884 [sym_literalNumber]; STATE 6992 [sym__literalInt; sym__literalFloat];
   STATE 5959 [aux_sym_literalString_repeat1]; ACTIONS 3338 [anon_sym_SEMI];
   ACTIONS 3196 [anon_sym_LBRACK]; ACTIONS 3198 [anon_sym_LPAREN];
   ACTIONS 3200 [aux_sym__literalString_token1]; ACTIONS 3202 [anon_sym_POUND];
   ACTIONS 3204 [aux_sym__literalInt_token1]; ACTIONS 3206 [aux_sym__literalInt_token2;
   aux_sym__literalInt_token3]; ACTIONS 3204 [aux_sym__literalFloat_token1];
   ACTIONS 3208 [sym_kAdd; sym_kSub]; ACTIONS 3210 [sym_kAt]; ACTIONS 3212 [sym_kTrue;
   sym_kFalse]; ACTIONS 3214 [sym_labelNumber]; ACTIONS 3 [sym__space];
   ACTIONS 5 [sym_ppDirective]; ACTIONS 3 [sym_comment]; ACTIONS 3212 [sym_ppFragmentExpr];
   ACTIONS 3200 [sym__literalStringMultiline]; ACTIONS 3216 [sym_identifier];
   ACTIONS 3218 [sym_kSpecialize]; ACTIONS 3308 [sym_kAsm]; ACTIONS 3310 [sym_kBegin];
   ACTIONS 3312 [sym_kCase]; ACTIONS 3226 [sym_kConst]; ACTIONS 3290 [sym_kElse; sym_kEnd;
   sym_kFinalization]; ACTIONS 3314 [sym_kFor]; ACTIONS 3234 [sym_kFunction];
   ACTIONS 3316 [sym_kGoto]; ACTIONS 3318 [sym_kIf]; ACTIONS 3290 [sym_kImplementation];
   ACTIONS 3240 [sym_kInherited]; ACTIONS 3290 [sym_kInitialization; sym_kInterface];
   ACTIONS 3212 [sym_kNil]; ACTIONS 3210 [sym_kNot]; ACTIONS 3234 [sym_kProcedure];
   ACTIONS 3320 [sym_kRaise]; ACTIONS 3322 [sym_kRepeat]; ACTIONS 3246 [sym_kString];
   ACTIONS 3324 [sym_kTry]; ACTIONS 3250 [sym_kVar]; ACTIONS 3326 [sym_kWhile];
   ACTIONS 3328 [sym_kWith]].

(** State 500. *)
Definition ts_parse_table_500 : parse_row :=
  [STATE 6213 [sym_if]; STATE 6327 [sym_ifElse; sym_while; sym_repeat; sym_for; sym_foreach;
   sym_try; sym_case; sym_block; sym_asm; sym_with; sym_raise; sym_statement; sym_goto;
   sym__statement]; STATE 14206 [sym_ifTr; sym_ifElseTr; sym_whileTr; sym_repeatTr; sym_forTr;
   sym_foreachTr; sym_tryTr; sym_caseTr]; STATE 14251 [sym_blockTr]; STATE 14206 [sym_asmTr;
   sym_withTr; sym_raiseTr; sym_statementTr; sym_gotoTr; sym__statementTr];
   STATE 13915 [sym_assignment]; STATE 11785 [sym_varAssignDef]; STATE 13915 [sym_varDef;
   sym_constDef]; STATE 6166 [sym_label]; STATE 14206 [sym__statementsTr]; STATE 8019 [sym__expr;
   sym_exprConditional]; STATE 7478 [sym__ref; sym_lambda; sym_inherited; sym_exprDot;
   sym_exprDeref; sym_exprAs; sym_exprTpl; sym_exprSubscript; sym_exprCall];
   STATE 8019 [sym_exprBinary; sym_exprUnary]; STATE 7478 [sym_exprParens; sym_exprBrackets;
   sym__literal; sym_literalString]; STATE 6664 [sym__literalString; sym_literalChar];
   STATE 7478 [sym_literalNumber]; STATE 7742 [sym__literalInt; sym__literalFloat];
   STATE 1380 [sym__ppIf]; STATE 6327 [sym__ppStatementBlock];
   STATE 11840 [aux_sym_labeledStatement_repeat1]; STATE 863 [aux_sym__statementsTr_repeat1];
   STATE 6664 [aux_sym_literalString_repeat1]; ACTIONS 397 [anon_sym_SEMI];
   ACTIONS 399 [anon_sym_LBRACK]; ACTIONS 401 [anon_sym_LPAREN];
   ACTIONS 403 [aux_sym__literalString_token1]; ACTIONS 405 [anon_sym_POUND];
   ACTIONS 407 [aux_sym__literalInt_token1]; ACTIONS 409 [aux_sym__literalInt_token2;
   aux_sym__literalInt_token3]; ACTIONS 407 [aux_sym__literalFloat_token1];
   ACTIONS 411 [aux_sym_ppUsesBlock_token1]; ACTIONS 413 [sym_kAdd; sym_kSub];
   ACTIONS 415 [sym_kAt]; ACTIONS 417 [sym_kTrue; sym_kFalse]; ACTIONS 419 [sym_labelNumber];
   ACTIONS 3 [sym__space]; ACTIONS 5 [sym_ppDirective]; ACTIONS 3 [sym_comment];
   ACTIONS 417 [sym_ppFragmentExpr]; ACTIONS 397 [sym_ppFragmentStmt];
   ACTIONS 403 [sym__literalStringMultiline]; ACTIONS 421 [sym_identifier];
   ACTIONS 423 [sym_kSpecialize]; ACTIONS 427 [sym_kAsm]; ACTIONS 429 [sym_kBegin];
   ACTIONS 431 [sym_kCase]; ACTIONS 433 [sym_kConst]; ACTIONS 3340 [sym_kEnd];
   ACTIONS 437 [sym_kFor]; ACTIONS 439 [sym_kFunction]; ACTIONS 441 [sym_kGoto];
   ACTIONS 443 [sym_kIf]; ACTIONS 445 [sym_kInherited]; ACTIONS 417 [sym_kNil];
   ACTIONS 415 [sym_kNot]; ACTIONS 439 [sym_kProcedure]; ACTIONS 447 [sym_kRaise];
   ACTIONS 449 [sym_kRepeat]; ACTIONS 451 [sym_kString]; ACTIONS 453 [sym_kTry];
   ACTIONS 455 [sym_kVar]; ACTIONS 457 [sym_kWhile]; ACTIONS 459 [sym_kWith]].

(** State 501. *)
Definition ts_parse_table_501 : parse_row :=
  [STATE 6213 [sym_if]; STATE 6327 [sym_ifElse; sym_while; sym_repeat; sym_for; sym_foreach;
   sym_try; sym_case; sym_block; sym_asm; sym_with; sym_raise; sym_statement; sym_goto;
   sym__statement]; STATE 14216 [sym_ifTr; sym_ifElseTr; sym_whileTr; sym_repeatTr; sym_forTr;
   sym_foreachTr; sym_tryTr; sym_caseTr]; STATE 14251 [sym_blockTr]; STATE 14216 [sym_asmTr;
   sym_withTr; sym_raiseTr; sym_statementTr; sym_gotoTr; sym__statementTr];
   STATE 13915 [sym_assignment]; STATE 11785 [sym_varAssignDef]; STATE 13915 [sym_varDef;
   sym_constDef]; STATE 6166 [sym_label]; STATE 14216 [sym__statementsTr]; STATE 8019 [sym__expr;
   sym_exprConditional]; STATE 7478 [sym__ref; sym_lambda; sym_inherited; sym_exprDot;
   sym_exprDeref; sym_exprAs; sym_exprTpl; sym_exprSubscript; sym_exprCall];
   STATE 8019 [sym_exprBinary; sym_exprUnary]; STATE 7478 [sym_exprParens; sym_exprBrackets;
   sym__literal; sym_literalString]; STATE 6664 [sym__literalString; sym_literalChar];
   STATE 7478 [sym_literalNumber]; STATE 7742 [sym__literalInt; sym__literalFloat];
   STATE 1380 [sym__ppIf]; STATE 6327 [sym__ppStatementBlock];
   STATE 11840 [aux_sym_labeledStatement_repeat1]; STATE 863 [aux_sym__statementsTr_repeat1];
   STATE 6664 [aux_sym_literalString_repeat1]; ACTIONS 397 [anon_sym_SEMI];
   ACTIONS 399 [anon_sym_LBRACK]; ACTIONS 401 [anon_sym_LPAREN];
   ACTIONS 403 [aux_sym__literalString_token1]; ACTIONS 405 [anon_sym_POUND];
   ACTIONS 407 [aux_sym__literalInt_token1]; ACTIONS 409 [aux_sym__literalInt_token2;
   aux_sym__literalInt_token3]; ACTIONS 407 [aux_sym__literalFloat_token1];
   ACTIONS 411 [aux_sym_ppUsesBlock_token1]; ACTIONS 413 [sym_kAdd; sym_kSub];
   ACTIONS 415 [sym_kAt]; ACTIONS 417 [sym_kTrue; sym_kFalse]; ACTIONS 419 [sym_labelNumber];
   ACTIONS 3 [sym__space]; ACTIONS 5 [sym_ppDirective]; ACTIONS 3 [sym_comment];
   ACTIONS 417 [sym_ppFragmentExpr]; ACTIONS 397 [sym_ppFragmentStmt];
   ACTIONS 403 [sym__literalStringMultiline]; ACTIONS 421 [sym_identifier];
   ACTIONS 423 [sym_kSpecialize]; ACTIONS 427 [sym_kAsm]; ACTIONS 429 [sym_kBegin];
   ACTIONS 431 [sym_kCase]; ACTIONS 433 [sym_kConst]; ACTIONS 3342 [sym_kEnd];
   ACTIONS 437 [sym_kFor]; ACTIONS 439 [sym_kFunction]; ACTIONS 441 [sym_kGoto];
   ACTIONS 443 [sym_kIf]; ACTIONS 445 [sym_kInherited]; ACTIONS 417 [sym_kNil];
   ACTIONS 415 [sym_kNot]; ACTIONS 439 [sym_kProcedure]; ACTIONS 447 [sym_kRaise];
   ACTIONS 449 [sym_kRepeat]; ACTIONS 451 [sym_kString]; ACTIONS 453 [sym_kTry];
   ACTIONS 455 [sym_kVar]; ACTIONS 457 [sym_kWhile]; ACTIONS 459 [sym_kWith]].

(** State 502. *)
Definition ts_parse_table_502 : parse_row :=
  [STATE 5604 [sym_if]; STATE 5647 [sym_ifElse; sym_while; sym_repeat; sym_for; sym_foreach;
   sym_try; sym_case; sym_block; sym_asm; sym_with; sym_raise; sym_statement; sym_goto;
   sym_labeledStatement; sym__statement]; STATE 11552 [sym_ifTr; sym_ifElseTr; sym_whileTr;
   sym_repeatTr; sym_forTr; sym_foreachTr; sym_tryTr; sym_caseTr]; STATE 11564 [sym_blockTr];
   STATE 11552 [sym_asmTr; sym_withTr; sym_raiseTr; sym_statementTr; sym_gotoTr;
   sym_labeledStatementTr; sym__statementTr]; STATE 11516 [sym_assignment];
   STATE 11931 [sym_varAssignDef]; STATE 11516 [sym_varDef; sym_constDef]; STATE 758 [sym_label];
   STATE 7221 [sym__expr; sym_exprConditional]; STATE 6884 [sym__ref; sym_lambda; sym_inherited;
   sym_exprDot; sym_exprDeref; sym_exprAs; sym_exprTpl; sym_exprSubscript; sym_exprCall];
   STATE 7221 [sym_exprBinary; sym_exprUnary]; STATE 6884 [sym_exprParens; sym_exprBrackets;
   sym__literal; sym_literalString]; STATE 5959 [sym__literalString; sym_literalChar];
   STATE 6884 [sym_literalNumber]; STATE 6992 [sym__literalInt; sym__literalFloat];
   STATE 5959 [aux_sym_literalString_repeat1]; ACTIONS 3344 [anon_sym_SEMI];
   ACTIONS 3196 [anon_sym_LBRACK]; ACTIONS 3198 [anon_sym_LPAREN];
   ACTIONS 3200 [aux_sym__literalString_token1]; ACTIONS 3202 [anon_sym_POUND];
   ACTIONS 3204 [aux_sym__literalInt_token1]; ACTIONS 3206 [aux_sym__literalInt_token2;
   aux_sym__literalInt_token3]; ACTIONS 3204 [aux_sym__literalFloat_token1];
   ACTIONS 3208 [sym_kAdd; sym_kSub]; ACTIONS 3210 [sym_kAt]; ACTIONS 3212 [sym_kTrue;
   sym_kFalse]; ACTIONS 3214 [sym_labelNumber]; ACTIONS 3 [sym__space];
   ACTIONS 5 [sym_ppDirective]; ACTIONS 3 [sym_comment]; ACTIONS 3212 [sym_ppFragmentExpr];
   ACTIONS 3200 [sym__literalStringMultiline]; ACTIONS 3216 [sym_identifier];
   ACTIONS 3218 [sym_kSpecialize]; ACTIONS 3308 [sym_kAsm]; ACTIONS 3310 [sym_kBegin];
   ACTIONS 3312 [sym_kCase]; ACTIONS 3226 [sym_kConst]; ACTIONS 3296 [sym_kElse; sym_kEnd;
   sym_kFinalization]; ACTIONS 3314 [sym_kFor]; ACTIONS 3234 [sym_kFunction];
   ACTIONS 3316 [sym_kGoto]; ACTIONS 3318 [sym_kIf]; ACTIONS 3296 [sym_kImplementation];
   ACTIONS 3240 [sym_kInherited]; ACTIONS 3296 [sym_kInitialization; sym_kInterface];
   ACTIONS 3212 [sym_kNil]; ACTIONS 3210 [sym_kNot]; ACTIONS 3234 [sym_kProcedure];
   ACTIONS 3320 [sym_kRaise]; ACTIONS 3322 [sym_kRepeat]; ACTIONS 3246 [sym_kString];
   ACTIONS 3324 [sym_kTry]; ACTIONS 3250 [sym_kVar]; ACTIONS 3326 [sym_kWhile];
   ACTIONS 3328 [sym_kWith]].

(** State 503. *)
Definition ts_parse_table_503 : parse_row :=
  [STATE 5604 [sym_if]; STATE 5648 [sym_ifElse; sym_while; sym_repeat; sym_for; sym_foreach;
   sym_try; sym_case; sym_block; sym_asm; sym_with; sym_raise; sym_statement; sym_goto;
   sym_labeledStatement; sym__statement]; STATE 11554 [sym_ifTr; sym_ifElseTr; sym_whileTr;
   sym_repeatTr; sym_forTr; sym_foreachTr; sym_tryTr; sym_caseTr]; STATE 11564 [sym_blockTr];
   STATE 11554 [sym_asmTr; sym_withTr; sym_raiseTr; sym_statementTr; sym_gotoTr;
   sym_labeledStatementTr; sym__statementTr]; STATE 11516 [sym_assignment];
   STATE 11931 [sym_varAssignDef]; STATE 11516 [sym_varDef; sym_constDef]; STATE 758 [sym_label];
   STATE 7221 [sym__expr; sym_exprConditional]; STATE 6884 [sym__ref; sym_lambda; sym_inherited;
   sym_exprDot; sym_exprDeref; sym_exprAs; sym_exprTpl; sym_exprSubscript; sym_exprCall];
   STATE 7221 [sym_exprBinary; sym_exprUnary]; STATE 6884 [sym_exprParens; sym_exprBrackets;
   sym__literal; sym_literalString]; STATE 5959 [sym__literalString; sym_literalChar];
   STATE 6884 [sym_literalNumber]; STATE 6992 [sym__literalInt; sym__literalFloat];
   STATE 5959 [aux_sym_literalString_repeat1]; ACTIONS 3346 [anon_sym_SEMI];
   ACTIONS 3196 [anon_sym_LBRACK]; ACTIONS 3198 [anon_sym_LPAREN];
   ACTIONS 3200 [aux_sym__literalString_token1]; ACTIONS 3202 [anon_sym_POUND];
   ACTIONS 3204 [aux_sym__literalInt_token1]; ACTIONS 3206 [aux_sym__literalInt_token2;
   aux_sym__literalInt_token3]; ACTIONS 3204 [aux_sym__literalFloat_token1];
   ACTIONS 3208 [sym_kAdd; sym_kSub]; ACTIONS 3210 [sym_kAt]; ACTIONS 3212 [sym_kTrue;
   sym_kFalse]; ACTIONS 3214 [sym_labelNumber]; ACTIONS 3 [sym__space];
   ACTIONS 5 [sym_ppDirective]; ACTIONS 3 [sym_comment]; ACTIONS 3212 [sym_ppFragmentExpr];
   ACTIONS 3200 [sym__literalStringMultiline]; ACTIONS 3216 [sym_identifier];
   ACTIONS 3218 [sym_kSpecialize]; ACTIONS 3308 [sym_kAsm]; ACTIONS 3310 [sym_kBegin];
   ACTIONS 3312 [sym_kCase]; ACTIONS 3226 [sym_kConst]; ACTIONS 3304 [sym_kElse; sym_kEnd;
   sym_kFinalization]; ACTIONS 3314 [sym_kFor]; ACTIONS 3234 [sym_kFunction];
   ACTIONS 3316 [sym_kGoto]; ACTIONS 3318 [sym_kIf]; ACTIONS 3304 [sym_kImplementation];
   ACTIONS 3240 [sym_kInherited]; ACTIONS 3304 [sym_kInitialization; sym_kInterface];
   ACTIONS 3212 [sym_kNil]; ACTIONS 3210 [sym_kNot]; ACTIONS 3234 [sym_kProcedure];
   ACTIONS 3320 [sym_kRaise]; ACTIONS 3322 [sym_kRepeat]; ACTIONS 3246 [sym_kString];
   ACTIONS 3324 [sym_kTry]; ACTIONS 3250 [sym_kVar]; ACTIONS 3326 [sym_kWhile];
   ACTIONS 3328 [sym_kWith]].

(** State 504. *)
Definition ts_parse_table_504 : parse_row :=
  [STATE 6213 [sym_if]; STATE 6327 [sym_ifElse; sym_while; sym_repeat; sym_for; sym_foreach;
   sym_try; sym_case; sym_block; sym_asm; sym_with; sym_raise; sym_statement; sym_goto;
   sym__statement]; STATE 14374 [sym_ifTr; sym_ifElseTr; sym_whileTr; sym_repeatTr; sym_forTr;
   sym_foreachTr; sym_tryTr; sym_caseTr]; STATE 14251 [sym_blockTr]; STATE 14374 [sym_asmTr;
   sym_withTr; sym_raiseTr; sym_statementTr; sym_gotoTr; sym__statementTr];
   STATE 13915 [sym_assignment]; STATE 11785 [sym_varAssignDef]; STATE 13915 [sym_varDef;
   sym_constDef]; STATE 6166 [sym_label]; STATE 14374 [sym__statementsTr]; STATE 8019 [sym__expr;
   sym_exprConditional]; STATE 7478 [sym__ref; sym_lambda; sym_inherited; sym_exprDot;
   sym_exprDeref; sym_exprAs; sym_exprTpl; sym_exprSubscript; sym_exprCall];
   STATE 8019 [sym_exprBinary; sym_exprUnary]; STATE 7478 [sym_exprParens; sym_exprBrackets;
   sym__literal; sym_literalString]; STATE 6664 [sym__literalString; sym_literalChar];
   STATE 7478 [sym_literalNumber]; STATE 7742 [sym__literalInt; sym__literalFloat];
   STATE 1380 [sym__ppIf]; STATE 6327 [sym__ppStatementBlock];
   STATE 11840 [aux_sym_labeledStatement_repeat1]; STATE 863 [aux_sym__statementsTr_repeat1];
   STATE 6664 [aux_sym_literalString_repeat1]; ACTIONS 397 [anon_sym_SEMI];
   ACTIONS 399 [anon_sym_LBRACK]; ACTIONS 401 [anon_sym_LPAREN];
   ACTIONS 403 [aux_sym__literalString_token1]; ACTIONS 405 [anon_sym_POUND];
   ACTIONS 407 [aux_sym__literalInt_token1]; ACTIONS 409 [aux_sym__literalInt_token2;
   aux_sym__literalInt_token3]; ACTIONS 407 [aux_sym__literalFloat_token1];
   ACTIONS 411 [aux_sym_ppUsesBlock_token1]; ACTIONS 413 [sym_kAdd; sym_kSub];
   ACTIONS 415 [sym_kAt]; ACTIONS 417 [sym_kTrue; sym_kFalse]; ACTIONS 419 [sym_labelNumber];
   ACTIONS 3 [sym__space]; ACTIONS 5 [sym_ppDirective]; ACTIONS 3 [sym_comment];
   ACTIONS 417 [sym_ppFragmentExpr]; ACTIONS 397 [sym_ppFragmentStmt];
   ACTIONS 403 [sym__literalStringMultiline]; ACTIONS 421 [sym_identifier];
   ACTIONS 423 [sym_kSpecialize]; ACTIONS 427 [sym_kAsm]; ACTIONS 429 [sym_kBegin];
   ACTIONS 431 [sym_kCase]; ACTIONS 433 [sym_kConst]; ACTIONS 2142 [sym_kEnd];
   ACTIONS 437 [sym_kFor]; ACTIONS 439 [sym_kFunction]; ACTIONS 441 [sym_kGoto];
   ACTIONS 443 [sym_kIf]; ACTIONS 445 [sym_kInherited]; ACTIONS 417 [sym_kNil];
   ACTIONS 415 [sym_kNot]; ACTIONS 439 [sym_kProcedure]; ACTIONS 447 [sym_kRaise];
   ACTIONS 449 [sym_kRepeat]; ACTIONS 451 [sym_kString]; ACTIONS 453 [sym_kTry];
   ACTIONS 455 [sym_kVar]; ACTIONS 457 [sym_kWhile]; ACTIONS 459 [sym_kWith]].

(** State 505. *)
Definition ts_parse_table_505 : parse_row :=
  [STATE 6213 [sym_if]; STATE 6327 [sym_ifElse; sym_while; sym_repeat; sym_for; sym_foreach;
   sym_try; sym_case; sym_block; sym_asm; sym_with; sym_raise; sym_statement; sym_goto;
   sym__statement]; STATE 14378 [sym_ifTr; sym_ifElseTr; sym_whileTr; sym_repeatTr; sym_forTr;
   sym_foreachTr; sym_tryTr; sym_caseTr]; STATE 14251 [sym_blockTr]; STATE 14378 [sym_asmTr;
   sym_withTr; sym_raiseTr; sym_statementTr; sym_gotoTr; sym__statementTr];
   STATE 13915 [sym_assignment]; STATE 11785 [sym_varAssignDef]; STATE 13915 [sym_varDef;
   sym_constDef]; STATE 6166 [sym_label]; STATE 14378 [sym__statementsTr]; STATE 8019 [sym__expr;
   sym_exprConditional]; STATE 7478 [sym__ref; sym_lambda; sym_inherited; sym_exprDot;
   sym_exprDeref; sym_exprAs; sym_exprTpl; sym_exprSubscript; sym_exprCall];
   STATE 8019 [sym_exprBinary; sym_exprUnary]; STATE 7478 [sym_exprParens; sym_exprBrackets;
   sym__literal; sym_literalString]; STATE 6664 [sym__literalString; sym_literalChar];
   STATE 7478 [sym_literalNumber]; STATE 7742 [sym__literalInt; sym__literalFloat];
   STATE 1380 [sym__ppIf]; STATE 6327 [sym__ppStatementBlock];
   STATE 11840 [aux_sym_labeledStatement_repeat1]; STATE 863 [aux_sym__statementsTr_repeat1];
   STATE 6664 [aux_sym_literalString_repeat1]; ACTIONS 397 [anon_sym_SEMI];
   ACTIONS 399 [anon_sym_LBRACK]; ACTIONS 401 [anon_sym_LPAREN];
   ACTIONS 403 [aux_sym__literalString_token1]; ACTIONS 405 [anon_sym_POUND];
   ACTIONS 407 [aux_sym__literalInt_token1]; ACTIONS 409 [aux_sym__literalInt_token2;
   aux_sym__literalInt_token3]; ACTIONS 407 [aux_sym__literalFloat_token1];
   ACTIONS 411 [aux_sym_ppUsesBlock_token1]; ACTIONS 413 [sym_kAdd; sym_kSub];
   ACTIONS 415 [sym_kAt]; ACTIONS 417 [sym_kTrue; sym_kFalse]; ACTIONS 419 [sym_labelNumber];
   ACTIONS 3 [sym__space]; ACTIONS 5 [sym_ppDirective]; ACTIONS 3 [sym_comment];
   ACTIONS 417 [sym_ppFragmentExpr]; ACTIONS 397 [sym_ppFragmentStmt];
   ACTIONS 403 [sym__literalStringMultiline]; ACTIONS 421 [sym_identifier];
   ACTIONS 423 [sym_kSpecialize]; ACTIONS 427 [sym_kAsm]; ACTIONS 429 [sym_kBegin];
   ACTIONS 431 [sym_kCase]; ACTIONS 433 [sym_kConst]; ACTIONS 2146 [sym_kEnd];
   ACTIONS 437 [sym_kFor]; ACTIONS 439 [sym_kFunction]; ACTIONS 441 [sym_kGoto];
   ACTIONS 443 [sym_kIf]; ACTIONS 445 [sym_kInherited]; ACTIONS 417 [sym_kNil];
   ACTIONS 415 [sym_kNot]; ACTIONS 439 [sym_kProcedure]; ACTIONS 447 [sym_kRaise];
   ACTIONS 449 [sym_kRepeat]; ACTIONS 451 [sym_kString]; ACTIONS 453 [sym_kTry];
   ACTIONS 455 [sym_kVar]; ACTIONS 457 [sym_kWhile]; ACTIONS 459 [sym_kWith]].

(** State 506. *)
Definition ts_parse_table_506 : parse_row :=
  [STATE 6213 [sym_if]; STATE 6327 [sym_ifElse; sym_while; sym_repeat; sym_for; sym_foreach;
   sym_try; sym_case; sym_block; sym_asm; sym_with; sym_raise; sym_statement; sym_goto;
   sym__statement]; STATE 15930 [sym_ifTr; sym_ifElseTr; sym_whileTr; sym_repeatTr; sym_forTr;
   sym_foreachTr; sym_tryTr; sym_caseTr]; STATE 14251 [sym_blockTr]; STATE 15930 [sym_asmTr;
   sym_withTr; sym_raiseTr; sym_statementTr; sym_gotoTr; sym__statementTr];
   STATE 13915 [sym_assignment]; STATE 11785 [sym_varAssignDef]; STATE 13915 [sym_varDef;
   sym_constDef]; STATE 6166 [sym_label]; STATE 15930 [sym__statementsTr]; STATE 8019 [sym__expr;
   sym_exprConditional]; STATE 7478 [sym__ref; sym_lambda; sym_inherited; sym_exprDot;
   sym_exprDeref; sym_exprAs; sym_exprTpl; sym_exprSubscript; sym_exprCall];
   STATE 8019 [sym_exprBinary; sym_exprUnary]; STATE 7478 [sym_exprParens; sym_exprBrackets;
   sym__literal; sym_literalString]; STATE 6664 [sym__literalString; sym_literalChar];
   STATE 7478 [sym_literalNumber]; STATE 7742 [sym__literalInt; sym__literalFloat];
   STATE 1380 [sym__ppIf]; STATE 6327 [sym__ppStatementBlock];
   STATE 11840 [aux_sym_labeledStatement_repeat1]; STATE 863 [aux_sym__statementsTr_repeat1];
   STATE 6664 [aux_sym_literalString_repeat1]; ACTIONS 397 [anon_sym_SEMI];
   ACTIONS 399 [anon_sym_LBRACK]; ACTIONS 401 [anon_sym_LPAREN];
   ACTIONS 403 [aux_sym__literalString_token1]; ACTIONS 405 [anon_sym_POUND];
   ACTIONS 407 [aux_sym__literalInt_token1]; ACTIONS 409 [aux_sym__literalInt_token2;
   aux_sym__literalInt_token3]; ACTIONS 407 [aux_sym__literalFloat_token1];
   ACTIONS 411 [aux_sym_ppUsesBlock_token1]; ACTIONS 413 [sym_kAdd; sym_kSub];
   ACTIONS 415 [sym_kAt]; ACTIONS 417 [sym_kTrue; sym_kFalse]; ACTIONS 419 [sym_labelNumber];
   ACTIONS 3 [sym__space]; ACTIONS 5 [sym_ppDirective]; ACTIONS 3 [sym_comment];
   ACTIONS 417 [sym_ppFragmentExpr]; ACTIONS 397 [sym_ppFragmentStmt];
   ACTIONS 403 [sym__literalStringMultiline]; ACTIONS 421 [sym_identifier];
   ACTIONS 423 [sym_kSpecialize]; ACTIONS 427 [sym_kAsm]; ACTIONS 429 [sym_kBegin];
   ACTIONS 431 [sym_kCase]; ACTIONS 433 [sym_kConst]; ACTIONS 3348 [sym_kEnd];
   ACTIONS 437 [sym_kFor]; ACTIONS 439 [sym_kFunction]; ACTIONS 441 [sym_kGoto];
   ACTIONS 443 [sym_kIf]; ACTIONS 445 [sym_kInherited]; ACTIONS 417 [sym_kNil];
   ACTIONS 415 [sym_kNot]; ACTIONS 439 [sym_kProcedure]; ACTIONS 447 [sym_kRaise];
   ACTIONS 449 [sym_kRepeat]; ACTIONS 451 [sym_kString]; ACTIONS 453 [sym_kTry];
   ACTIONS 455 [sym_kVar]; ACTIONS 457 [sym_kWhile]; ACTIONS 459 [sym_kWith]].

(** State 507. *)
Definition ts_parse_table_507 : parse_row :=
  [STATE 6213 [sym_if]; STATE 6327 [sym_ifElse; sym_while; sym_repeat; sym_for; sym_foreach;
   sym_try; sym_case; sym_block; sym_asm; sym_with; sym_raise; sym_statement; sym_goto;
   sym__statement]; STATE 14386 [sym_ifTr; sym_ifElseTr; sym_whileTr; sym_repeatTr; sym_forTr;
   sym_foreachTr; sym_tryTr; sym_caseTr]; STATE 14251 [sym_blockTr]; STATE 14386 [sym_asmTr;
   sym_withTr; sym_raiseTr; sym_statementTr; sym_gotoTr; sym__statementTr];
   STATE 13915 [sym_assignment]; STATE 11785 [sym_varAssignDef]; STATE 13915 [sym_varDef;
   sym_constDef]; STATE 6166 [sym_label]; STATE 14386 [sym__statementsTr]; STATE 8019 [sym__expr;
   sym_exprConditional]; STATE 7478 [sym__ref; sym_lambda; sym_inherited; sym_exprDot;
   sym_exprDeref; sym_exprAs; sym_exprTpl; sym_exprSubscript; sym_exprCall];
   STATE 8019 [sym_exprBinary; sym_exprUnary]; STATE 7478 [sym_exprParens; sym_exprBrackets;
   sym__literal; sym_literalString]; STATE 6664 [sym__literalString; sym_literalChar];
   STATE 7478 [sym_literalNumber]; STATE 7742 [sym__literalInt; sym__literalFloat];
   STATE 1380 [sym__ppIf]; STATE 6327 [sym__ppStatementBlock];
   STATE 11840 [aux_sym_labeledStatement_repeat1]; STATE 863 [aux_sym__statementsTr_repeat1];
   STATE 6664 [aux_sym_literalString_repeat1]; ACTIONS 397 [anon_sym_SEMI];
   ACTIONS 399 [anon_sym_LBRACK]; ACTIONS 401 [anon_sym_LPAREN];
   ACTIONS 403 [aux_sym__literalString_token1]; ACTIONS 405 [anon_sym_POUND];
   ACTIONS 407 [aux_sym__literalInt_token1]; ACTIONS 409 [aux_sym__literalInt_token2;
   aux_sym__literalInt_token3]; ACTIONS 407 [aux_sym__literalFloat_token1];
   ACTIONS 411 [aux_sym_ppUsesBlock_token1]; ACTIONS 413 [sym_kAdd; sym_kSub];
   ACTIONS 415 [sym_kAt]; ACTIONS 417 [sym_kTrue; sym_kFalse]; ACTIONS 419 [sym_labelNumber];
   ACTIONS 3 [sym__space]; ACTIONS 5 [sym_ppDirective]; ACTIONS 3 [sym_comment];
   ACTIONS 417 [sym_ppFragmentExpr]; ACTIONS 397 [sym_ppFragmentStmt];
   ACTIONS 403 [sym__literalStringMultiline]; ACTIONS 421 [sym_identifier];
   ACTIONS 423 [sym_kSpecialize]; ACTIONS 427 [sym_kAsm]; ACTIONS 429 [sym_kBegin];
   ACTIONS 431 [sym_kCase]; ACTIONS 433 [sym_kConst]; ACTIONS 3350 [sym_kEnd];
   ACTIONS 437 [sym_kFor]; ACTIONS 439 [sym_kFunction]; ACTIONS 441 [sym_kGoto];
   ACTIONS 443 [sym_kIf]; ACTIONS 445 [sym_kInherited]; ACTIONS 417 [sym_kNil];
   ACTIONS 415 [sym_kNot]; ACTIONS 439 [sym_kProcedure]; ACTIONS 447 [sym_kRaise];
   ACTIONS 449 [sym_kRepeat]; ACTIONS 451 [sym_kString]; ACTIONS 453 [sym_kTry];
   ACTIONS 455 [sym_kVar]; ACTIONS 457 [sym_kWhile]; ACTIONS 459 [sym_kWith]].

(** State 508. *)
Definition ts_parse_table_508 : parse_row :=
  [STATE 6213 [sym_if]; STATE 6327 [sym_ifElse; sym_while; sym_repeat; sym_for; sym_foreach;
   sym_try; sym_case; sym_block; sym_asm; sym_with; sym_raise; sym_statement; sym_goto;
   sym__statement]; STATE 14425 [sym_ifTr; sym_ifElseTr; sym_whileTr; sym_repeatTr; sym_forTr;
   sym_foreachTr; sym_tryTr; sym_caseTr]; STATE 14251 [sym_blockTr]; STATE 14425 [sym_asmTr;
   sym_withTr; sym_raiseTr; sym_statementTr; sym_gotoTr; sym__statementTr];
   STATE 13915 [sym_assignment]; STATE 11785 [sym_varAssignDef]; STATE 13915 [sym_varDef;
   sym_constDef]; STATE 6166 [sym_label]; STATE 14425 [sym__statementsTr]; STATE 8019 [sym__expr;
   sym_exprConditional]; STATE 7478 [sym__ref; sym_lambda; sym_inherited; sym_exprDot;
   sym_exprDeref; sym_exprAs; sym_exprTpl; sym_exprSubscript; sym_exprCall];
   STATE 8019 [sym_exprBinary; sym_exprUnary]; STATE 7478 [sym_exprParens; sym_exprBrackets;
   sym__literal; sym_literalString]; STATE 6664 [sym__literalString; sym_literalChar];
   STATE 7478 [sym_literalNumber]; STATE 7742 [sym__literalInt; sym__literalFloat];
   STATE 1380 [sym__ppIf]; STATE 6327 [sym__ppStatementBlock];
   STATE 11840 [aux_sym_labeledStatement_repeat1]; STATE 863 [aux_sym__statementsTr_repeat1];
   STATE 6664 [aux_sym_literalString_repeat1]; ACTIONS 397 [anon_sym_SEMI];
   ACTIONS 399 [anon_sym_LBRACK]; ACTIONS 401 [anon_sym_LPAREN];
   ACTIONS 403 [aux_sym__literalString_token1]; ACTIONS 405 [anon_sym_POUND];
   ACTIONS 407 [aux_sym__literalInt_token1]; ACTIONS 409 [aux_sym__literalInt_token2;
   aux_sym__literalInt_token3]; ACTIONS 407 [aux_sym__literalFloat_token1];
   ACTIONS 411 [aux_sym_ppUsesBlock_token1]; ACTIONS 413 [sym_kAdd; sym_kSub];
   ACTIONS 415 [sym_kAt]; ACTIONS 417 [sym_kTrue; sym_kFalse]; ACTIONS 419 [sym_labelNumber];
   ACTIONS 3 [sym__space]; ACTIONS 5 [sym_ppDirective]; ACTIONS 3 [sym_comment];
   ACTIONS 417 [sym_ppFragmentExpr]; ACTIONS 397 [sym_ppFragmentStmt];
   ACTIONS 403 [sym__literalStringMultiline]; ACTIONS 421 [sym_identifier];
   ACTIONS 423 [sym_kSpecialize]; ACTIONS 427 [sym_kAsm]; ACTIONS 429 [sym_kBegin];
   ACTIONS 431 [sym_kCase]; ACTIONS 433 [sym_kConst]; ACTIONS 3352 [sym_kEnd];
   ACTIONS 437 [sym_kFor]; ACTIONS 439 [sym_kFunction]; ACTIONS 441 [sym_kGoto];
   ACTIONS 443 [sym_kIf]; ACTIONS 445 [sym_kInherited]; ACTIONS 417 [sym_kNil];
   ACTIONS 415 [sym_kNot]; ACTIONS 439 [sym_kProcedure]; ACTIONS 447 [sym_kRaise];
   ACTIONS 449 [sym_kRepeat]; ACTIONS 451 [sym_kString]; ACTIONS 453 [sym_kTry];
   ACTIONS 455 [sym_kVar]; ACTIONS 457 [sym_kWhile]; ACTIONS 459 [sym_kWith]].

(** State 509. *)
Definition ts_parse_table_509 : parse_row :=
  [STATE 6213 [sym_if]; STATE 6327 [sym_ifElse; sym_while; sym_repeat; sym_for; sym_foreach;
   sym_try; sym_case; sym_block; sym_asm; sym_with; sym_raise; sym_statement; sym_goto;
   sym__statement]; STATE 14432 [sym_ifTr; sym_ifElseTr; sym_whileTr; sym_repeatTr; sym_forTr;
   sym_foreachTr; sym_tryTr; sym_caseTr]; STATE 14251 [sym_blockTr]; STATE 14432 [sym_asmTr;
   sym_withTr; sym_raiseTr; sym_statementTr; sym_gotoTr; sym__statementTr];
   STATE 13915 [sym_assignment]; STATE 11785 [sym_varAssignDef]; STATE 13915 [sym_varDef;
   sym_constDef]; STATE 6166 [sym_label]; STATE 14432 [sym__statementsTr]; STATE 8019 [sym__expr;
   sym_exprConditional]; STATE 7478 [sym__ref; sym_lambda; sym_inherited; sym_exprDot;
   sym_exprDeref; sym_exprAs; sym_exprTpl; sym_exprSubscript; sym_exprCall];
   STATE 8019 [sym_exprBinary; sym_exprUnary]; STATE 7478 [sym_exprParens; sym_exprBrackets;
   sym__literal; sym_literalString]; STATE 6664 [sym__literalString; sym_literalChar];
   STATE 7478 [sym_literalNumber]; STATE 7742 [sym__literalInt; sym__literalFloat];
   STATE 1380 [sym__ppIf]; STATE 6327 [sym__ppStatementBlock];
   STATE 11840 [aux_sym_labeledStatement_repeat1]; STATE 863 [aux_sym__statementsTr_repeat1];
   STATE 6664 [aux_sym_literalString_repeat1]; ACTIONS 397 [anon_sym_SEMI];
   ACTIONS 399 [anon_sym_LBRACK]; ACTIONS 401 [anon_sym_LPAREN];
   ACTIONS 403 [aux_sym__literalString_token1]; ACTIONS 405 [anon_sym_POUND];
   ACTIONS 407 [aux_sym__literalInt_token1]; ACTIONS 409 [aux_sym__literalInt_token2;
   aux_sym__literalInt_token3]; ACTIONS 407 [aux_sym__literalFloat_token1];
   ACTIONS 411 [aux_sym_ppUsesBlock_token1]; ACTIONS 413 [sym_kAdd; sym_kSub];
   ACTIONS 415 [sym_kAt]; ACTIONS 417 [sym_kTrue; sym_kFalse]; ACTIONS 419 [sym_labelNumber];
   ACTIONS 3 [sym__space]; ACTIONS 5 [sym_ppDirective]; ACTIONS 3 [sym_comment];
   ACTIONS 417 [sym_ppFragmentExpr]; ACTIONS 397 [sym_ppFragmentStmt];
   ACTIONS 403 [sym__literalStringMultiline]; ACTIONS 421 [sym_identifier];
   ACTIONS 423 [sym_kSpecialize]; ACTIONS 427 [sym_kAsm]; ACTIONS 429 [sym_kBegin];
   ACTIONS 431 [sym_kCase]; ACTIONS 433 [sym_kConst]; ACTIONS 3354 [sym_kEnd];
   ACTIONS 437 [sym_kFor]; ACTIONS 439 [sym_kFunction]; ACTIONS 441 [sym_kGoto];
   ACTIONS 443 [sym_kIf]; ACTIONS 445 [sym_kInherited]; ACTIONS 417 [sym_kNil];
   ACTIONS 415 [sym_kNot]; ACTIONS 439 [sym_kProcedure]; ACTIONS 447 [sym_kRaise];
   ACTIONS 449 [sym_kRepeat]; ACTIONS 451 [sym_kString]; ACTIONS 453 [sym_kTry];
   ACTIONS 455 [sym_kVar]; ACTIONS 457 [sym_kWhile]; ACTIONS 459 [sym_kWith]].

(** State 510. *)
Definition ts_parse_table_510 : parse_row :=
  [STATE 6213 [sym_if]; STATE 6327 [sym_ifElse; sym_while; sym_repeat; sym_for; sym_foreach;
   sym_try; sym_case; sym_block; sym_asm; sym_with; sym_raise; sym_statement; sym_goto;
   sym__statement]; STATE 15980 [sym_ifTr; sym_ifElseTr; sym_whileTr; sym_repeatTr; sym_forTr;
   sym_foreachTr; sym_tryTr; sym_caseTr]; STATE 14251 [sym_blockTr]; STATE 15980 [sym_asmTr;
   sym_withTr; sym_raiseTr; sym_statementTr; sym_gotoTr; sym__statementTr];
   STATE 13915 [sym_assignment]; STATE 11785 [sym_varAssignDef]; STATE 13915 [sym_varDef;
   sym_constDef]; STATE 6166 [sym_label]; STATE 15980 [sym__statementsTr]; STATE 8019 [sym__expr;
   sym_exprConditional]; STATE 7478 [sym__ref; sym_lambda; sym_inherited; sym_exprDot;
   sym_exprDeref; sym_exprAs; sym_exprTpl; sym_exprSubscript; sym_exprCall];
   STATE 8019 [sym_exprBinary; sym_exprUnary]; STATE 7478 [sym_exprParens; sym_exprBrackets;
   sym__literal; sym_literalString]; STATE 6664 [sym__literalString; sym_literalChar];
   STATE 7478 [sym_literalNumber]; STATE 7742 [sym__literalInt; sym__literalFloat];
   STATE 1380 [sym__ppIf]; STATE 6327 [sym__ppStatementBlock];
   STATE 11840 [aux_sym_labeledStatement_repeat1]; STATE 863 [aux_sym__statementsTr_repeat1];
   STATE 6664 [aux_sym_literalString_repeat1]; ACTIONS 397 [anon_sym_SEMI];
   ACTIONS 399 [anon_sym_LBRACK]; ACTIONS 401 [anon_sym_LPAREN];
   ACTIONS 403 [aux_sym__literalString_token1]; ACTIONS 405 [anon_sym_POUND];
   ACTIONS 407 [aux_sym__literalInt_token1]; ACTIONS 409 [aux_sym__literalInt_token2;
   aux_sym__literalInt_token3]; ACTIONS 407 [aux_sym__literalFloat_token1];
   ACTIONS 411 [aux_sym_ppUsesBlock_token1]; ACTIONS 413 [sym_kAdd; sym_kSub];
   ACTIONS 415 [sym_kAt]; ACTIONS 417 [sym_kTrue; sym_kFalse]; ACTIONS 419 [sym_labelNumber];
   ACTIONS 3 [sym__space]; ACTIONS 5 [sym_ppDirective]; ACTIONS 3 [sym_comment];
   ACTIONS 417 [sym_ppFragmentExpr]; ACTIONS 397 [sym_ppFragmentStmt];
   ACTIONS 403 [sym__literalStringMultiline]; ACTIONS 421 [sym_identifier];
   ACTIONS 423 [sym_kSpecialize]; ACTIONS 427 [sym_kAsm]; ACTIONS 429 [sym_kBegin];
   ACTIONS 431 [sym_kCase]; ACTIONS 433 [sym_kConst]; ACTIONS 3356 [sym_kEnd];
   ACTIONS 437 [sym_kFor]; ACTIONS 439 [sym_kFunction]; ACTIONS 441 [sym_kGoto];
   ACTIONS 443 [sym_kIf]; ACTIONS 445 [sym_kInherited]; ACTIONS 417 [sym_kNil];
   ACTIONS 415 [sym_kNot]; ACTIONS 439 [sym_kProcedure]; ACTIONS 447 [sym_kRaise];
   ACTIONS 449 [sym_kRepeat]; ACTIONS 451 [sym_kString]; ACTIONS 453 [sym_kTry];
   ACTIONS 455 [sym_kVar]; ACTIONS 457 [sym_kWhile]; ACTIONS 459 [sym_kWith]].

(** State 511. *)
Definition ts_parse_table_511 : parse_row :=
  [STATE 6213 [sym_if]; STATE 6327 [sym_ifElse; sym_while; sym_repeat; sym_for; sym_foreach;
   sym_try; sym_case; sym_block; sym_asm; sym_with; sym_raise; sym_statement; sym_goto;
   sym__statement]; STATE 14593 [sym_ifTr; sym_ifElseTr; sym_whileTr; sym_repeatTr; sym_forTr;
   sym_foreachTr; sym_tryTr; sym_caseTr]; STATE 14251 [sym_blockTr]; STATE 14593 [sym_asmTr;
   sym_withTr; sym_raiseTr; sym_statementTr; sym_gotoTr; sym__statementTr];
   STATE 13915 [sym_assignment]; STATE 11785 [sym_varAssignDef]; STATE 13915 [sym_varDef;
   sym_constDef]; STATE 6166 [sym_label]; STATE 14593 [sym__statementsTr]; STATE 8019 [sym__expr;
   sym_exprConditional]; STATE 7478 [sym__ref; sym_lambda; sym_inherited; sym_exprDot;
   sym_exprDeref; sym_exprAs; sym_exprTpl; sym_exprSubscript; sym_exprCall];
   STATE 8019 [sym_exprBinary; sym_exprUnary]; STATE 7478 [sym_exprParens; sym_exprBrackets;
   sym__literal; sym_literalString]; STATE 6664 [sym__literalString; sym_literalChar];
   STATE 7478 [sym_literalNumber]; STATE 7742 [sym__literalInt; sym__literalFloat];
   STATE 1380 [sym__ppIf]; STATE 6327 [sym__ppStatementBlock];
   STATE 11840 [aux_sym_labeledStatement_repeat1]; STATE 863 [aux_sym__statementsTr_repeat1];
   STATE 6664 [aux_sym_literalString_repeat1]; ACTIONS 397 [anon_sym_SEMI];
   ACTIONS 399 [anon_sym_LBRACK]; ACTIONS 401 [anon_sym_LPAREN];
   ACTIONS 403 [aux_sym__literalString_token1]; ACTIONS 405 [anon_sym_POUND];
   ACTIONS 407 [aux_sym__literalInt_token1]; ACTIONS 409 [aux_sym__literalInt_token2;
   aux_sym__literalInt_token3]; ACTIONS 407 [aux_sym__literalFloat_token1];
   ACTIONS 411 [aux_sym_ppUsesBlock_token1]; ACTIONS 413 [sym_kAdd; sym_kSub];
   ACTIONS 415 [sym_kAt]; ACTIONS 417 [sym_kTrue; sym_kFalse]; ACTIONS 419 [sym_labelNumber];
   ACTIONS 3 [sym__space]; ACTIONS 5 [sym_ppDirective]; ACTIONS 3 [sym_comment];
   ACTIONS 417 [sym_ppFragmentExpr]; ACTIONS 397 [sym_ppFragmentStmt];
   ACTIONS 403 [sym__literalStringMultiline]; ACTIONS 421 [sym_identifier];
   ACTIONS 423 [sym_kSpecialize]; ACTIONS 427 [sym_kAsm]; ACTIONS 429 [sym_kBegin];
   ACTIONS 431 [sym_kCase]; ACTIONS 433 [sym_kConst]; ACTIONS 2158 [sym_kEnd];
   ACTIONS 437 [sym_kFor]; ACTIONS 439 [sym_kFunction]; ACTIONS 441 [sym_kGoto];
   ACTIONS 443 [sym_kIf]; ACTIONS 445 [sym_kInherited]; ACTIONS 417 [sym_kNil];
   ACTIONS 415 [sym_kNot]; ACTIONS 439 [sym_kProcedure]; ACTIONS 447 [sym_kRaise];
   ACTIONS 449 [sym_kRepeat]; ACTIONS 451 [sym_kString]; ACTIONS 453 [sym_kTry];
   ACTIONS 455 [sym_kVar]; ACTIONS 457 [sym_kWhile]; ACTIONS 459 [sym_kWith]].

(** State 512. *)
Definition ts_parse_table_512 : parse_row :=
  [STATE 6213 [sym_if]; STATE 6327 [sym_ifElse; sym_while; sym_repeat; sym_for; sym_foreach;
   sym_try; sym_case; sym_block; sym_asm; sym_with; sym_raise; sym_statement; sym_goto;
   sym__statement]; STATE 14602 [sym_ifTr; sym_ifElseTr; sym_whileTr; sym_repeatTr; sym_forTr;
   sym_foreachTr; sym_tryTr; sym_caseTr]; STATE 14251 [sym_blockTr]; STATE 14602 [sym_asmTr;
   sym_withTr; sym_raiseTr; sym_statementTr; sym_gotoTr; sym__statementTr];
   STATE 13915 [sym_assignment]; STATE 11785 [sym_varAssignDef]; STATE 13915 [sym_varDef;
   sym_constDef]; STATE 6166 [sym_label]; STATE 14602 [sym__statementsTr]; STATE 8019 [sym__expr;
   sym_exprConditional]; STATE 7478 [sym__ref; sym_lambda; sym_inherited; sym_exprDot;
   sym_exprDeref; sym_exprAs; sym_exprTpl; sym_exprSubscript; sym_exprCall];
   STATE 8019 [sym_exprBinary; sym_exprUnary]; STATE 7478 [sym_exprParens; sym_exprBrackets;
   sym__literal; sym_literalString]; STATE 6664 [sym__literalString; sym_literalChar];
   STATE 7478 [sym_literalNumber]; STATE 7742 [sym__literalInt; sym__literalFloat];
   STATE 1380 [sym__ppIf]; STATE 6327 [sym__ppStatementBlock];
   STATE 11840 [aux_sym_labeledStatement_repeat1]; STATE 863 [aux_sym__statementsTr_repeat1];
   STATE 6664 [aux_sym_literalString_repeat1]; ACTIONS 397 [anon_sym_SEMI];
   ACTIONS 399 [anon_sym_LBRACK]; ACTIONS 401 [anon_sym_LPAREN];
   ACTIONS 403 [aux_sym__literalString_token1]; ACTIONS 405 [anon_sym_POUND];
   ACTIONS 407 [aux_sym__literalInt_token1]; ACTIONS 409 [aux_sym__literalInt_token2;
   aux_sym__literalInt_token3]; ACTIONS 407 [aux_sym__literalFloat_token1];
   ACTIONS 411 [aux_sym_ppUsesBlock_token1]; ACTIONS 413 [sym_kAdd; sym_kSub];
   ACTIONS 415 [sym_kAt]; ACTIONS 417 [sym_kTrue; sym_kFalse]; ACTIONS 419 [sym_labelNumber];
   ACTIONS 3 [sym__space]; ACTIONS 5 [sym_ppDirective]; ACTIONS 3 [sym_comment];
   ACTIONS 417 [sym_ppFragmentExpr]; ACTIONS 397 [sym_ppFragmentStmt];
   ACTIONS 403 [sym__literalStringMultiline]; ACTIONS 421 [sym_identifier];
   ACTIONS 423 [sym_kSpecialize]; ACTIONS 427 [sym_kAsm]; ACTIONS 429 [sym_kBegin];
   ACTIONS 431 [sym_kCase]; ACTIONS 433 [sym_kConst]; ACTIONS 2162 [sym_kEnd];
   ACTIONS 437 [sym_kFor]; ACTIONS 439 [sym_kFunction]; ACTIONS 441 [sym_kGoto];
   ACTIONS 443 [sym_kIf]; ACTIONS 445 [sym_kInherited]; ACTIONS 417 [sym_kNil];
   ACTIONS 415 [sym_kNot]; ACTIONS 439 [sym_kProcedure]; ACTIONS 447 [sym_kRaise];
   ACTIONS 449 [sym_kRepeat]; ACTIONS 451 [sym_kString]; ACTIONS 453 [sym_kTry];
   ACTIONS 455 [sym_kVar]; ACTIONS 457 [sym_kWhile]; ACTIONS 459 [sym_kWith]].

(** State 513. *)
Definition ts_parse_table_513 : parse_row :=
  [STATE 6213 [sym_if]; STATE 6327 [sym_ifElse; sym_while; sym_repeat; sym_for; sym_foreach;
   sym_try; sym_case; sym_block; sym_asm; sym_with; sym_raise; sym_statement; sym_goto;
   sym__statement]; STATE 15911 [sym_ifTr; sym_ifElseTr; sym_whileTr; sym_repeatTr; sym_forTr;
   sym_foreachTr; sym_tryTr; sym_caseTr]; STATE 14251 [sym_blockTr]; STATE 15911 [sym_asmTr;
   sym_withTr; sym_raiseTr; sym_statementTr; sym_gotoTr; sym__statementTr];
   STATE 13915 [sym_assignment]; STATE 11785 [sym_varAssignDef]; STATE 13915 [sym_varDef;
   sym_constDef]; STATE 6166 [sym_label]; STATE 15911 [sym__statementsTr]; STATE 8019 [sym__expr;
   sym_exprConditional]; STATE 7478 [sym__ref; sym_lambda; sym_inherited; sym_exprDot;
   sym_exprDeref; sym_exprAs; sym_exprTpl; sym_exprSubscript; sym_exprCall];
   STATE 8019 [sym_exprBinary; sym_exprUnary]; STATE 7478 [sym_exprParens; sym_exprBrackets;
   sym__literal; sym_literalString]; STATE 6664 [sym__literalString; sym_literalChar];
   STATE 7478 [sym_literalNumber]; STATE 7742 [sym__literalInt; sym__literalFloat];
   STATE 1380 [sym__ppIf]; STATE 6327 [sym__ppStatementBlock];
   STATE 11840 [aux_sym_labeledStatement_repeat1]; STATE 863 [aux_sym__statementsTr_repeat1];
   STATE 6664 [aux_sym_literalString_repeat1]; ACTIONS 397 [anon_sym_SEMI];
   ACTIONS 399 [anon_sym_LBRACK]; ACTIONS 401 [anon_sym_LPAREN];
   ACTIONS 403 [aux_sym__literalString_token1]; ACTIONS 405 [anon_sym_POUND];
   ACTIONS 407 [aux_sym__literalInt_token1]; ACTIONS 409 [aux_sym__literalInt_token2;
   aux_sym__literalInt_token3]; ACTIONS 407 [aux_sym__literalFloat_token1];
   ACTIONS 411 [aux_sym_ppUsesBlock_token1]; ACTIONS 413 [sym_kAdd; sym_kSub];
   ACTIONS 415 [sym_kAt]; ACTIONS 417 [sym_kTrue; sym_kFalse]; ACTIONS 419 [sym_labelNumber];
   ACTIONS 3 [sym__space]; ACTIONS 5 [sym_ppDirective]; ACTIONS 3 [sym_comment];
   ACTIONS 417 [sym_ppFragmentExpr]; ACTIONS 397 [sym_ppFragmentStmt];
   ACTIONS 403 [sym__literalStringMultiline]; ACTIONS 421 [sym_identifier];
   ACTIONS 423 [sym_kSpecialize]; ACTIONS 427 [sym_kAsm]; ACTIONS 429 [sym_kBegin];
   ACTIONS 431 [sym_kCase]; ACTIONS 433 [sym_kConst]; ACTIONS 3358 [sym_kEnd];
   ACTIONS 437 [sym_kFor]; ACTIONS 439 [sym_kFunction]; ACTIONS 441 [sym_kGoto];
   ACTIONS 443 [sym_kIf]; ACTIONS 445 [sym_kInherited]; ACTIONS 417 [sym_kNil];
   ACTIONS 415 [sym_kNot]; ACTIONS 439 [sym_kProcedure]; ACTIONS 447 [sym_kRaise];
   ACTIONS 449 [sym_kRepeat]; ACTIONS 451 [sym_kString]; ACTIONS 453 [sym_kTry];
   ACTIONS 455 [sym_kVar]; ACTIONS 457 [sym_kWhile]; ACTIONS 459 [sym_kWith]].

Definition ts_parse_table_part3 : list parse_row :=
  [
   ts_parse_table_331; ts_parse_table_332; ts_parse_table_333; ts_parse_table_334;
   ts_parse_table_335; ts_parse_table_336; ts_parse_table_337; ts_parse_table_338;
   ts_parse_table_339; ts_parse_table_340; ts_parse_table_341; ts_parse_table_342;
   ts_parse_table_343; ts_parse_table_344; ts_parse_table_345; ts_parse_table_346;
   ts_parse_table_347; ts_parse_table_348; ts_parse_table_349; ts_parse_table_350;
   ts_parse_table_351; ts_parse_table_352; ts_parse_table_353; ts_parse_table_354;
   ts_parse_table_355; ts_parse_table_356; ts_parse_table_357; ts_parse_table_358;
   ts_parse_table_359; ts_parse_table_360; ts_parse_table_361; ts_parse_table_362;
   ts_parse_table_363; ts_parse_table_364; ts_parse_table_365; ts_parse_table_366;
   ts_parse_table_367; ts_parse_table_368; ts_parse_table_369; ts_parse_table_370;
   ts_parse_table_371; ts_parse_table_372; ts_parse_table_373; ts_parse_table_374;
   ts_parse_table_375; ts_parse_table_376; ts_parse_table_377; ts_parse_table_378;
   ts_parse_table_379; ts_parse_table_380; ts_parse_table_381; ts_parse_table_382;
   ts_parse_table_383; ts_parse_table_384; ts_parse_table_385; ts_parse_table_386;
   ts_parse_table_387; ts_parse_table_388; ts_parse_table_389; ts_parse_table_390;
   ts_parse_table_391; ts_parse_table_392; ts_parse_table_393; ts_parse_table_394;
   ts_parse_table_395; ts_parse_table_396; ts_parse_table_397; ts_parse_table_398;
   ts_parse_table_399; ts_parse_table_400; ts_parse_table_401; ts_parse_table_402;
   ts_parse_table_403; ts_parse_table_404; ts_parse_table_405; ts_parse_table_406;
   ts_parse_table_407; ts_parse_table_408; ts_parse_table_409; ts_parse_table_410;
   ts_parse_table_411; ts_parse_table_412; ts_parse_table_413; ts_parse_table_414;
   ts_parse_table_415; ts_parse_table_416; ts_parse_table_417; ts_parse_table_418;
   ts_parse_table_419; ts_parse_table_420; ts_parse_table_421; ts_parse_table_422;
   ts_parse_table_423; ts_parse_table_424; ts_parse_table_425; ts_parse_table_426;
   ts_parse_table_427; ts_parse_table_428; ts_parse_table_429; ts_parse_table_430;
   ts_parse_table_431; ts_parse_table_432; ts_parse_table_433; ts_parse_table_434;
   ts_parse_table_435; ts_parse_table_436; ts_parse_table_437; ts_parse_table_438;
   ts_parse_table_439; ts_parse_table_440; ts_parse_table_441; ts_parse_table_442;
   ts_parse_table_443; ts_parse_table_444; ts_parse_table_445; ts_parse_table_446;
   ts_parse_table_447; ts_parse_table_448; ts_parse_table_449; ts_parse_table_450;
   ts_parse_table_451; ts_parse_table_452; ts_parse_table_453; ts_parse_table_454;
   ts_parse_table_455; ts_parse_table_456; ts_parse_table_457; ts_parse_table_458;
   ts_parse_table_459; ts_parse_table_460; ts_parse_table_461; ts_parse_table_462;
   ts_parse_table_463; ts_parse_table_464; ts_parse_table_465; ts_parse_table_466;
   ts_parse_table_467; ts_parse_table_468; ts_parse_table_469; ts_parse_table_470;
   ts_parse_table_471; ts_parse_table_472; ts_parse_table_473; ts_parse_table_474;
   ts_parse_table_475; ts_parse_table_476; ts_parse_table_477; ts_parse_table_478;
   ts_parse_table_479; ts_parse_table_480; ts_parse_table_481; ts_parse_table_482;
   ts_parse_table_483; ts_parse_table_484; ts_parse_table_485; ts_parse_table_486;
   ts_parse_table_487; ts_parse_table_488; ts_parse_table_489; ts_parse_table_490;
   ts_parse_table_491; ts_parse_table_492; ts_parse_table_493; ts_parse_table_494;
   ts_parse_table_495; ts_parse_table_496; ts_parse_table_497; ts_parse_table_498;
   ts_parse_table_499; ts_parse_table_500; ts_parse_table_501; ts_parse_table_502;
   ts_parse_table_503; ts_parse_table_504; ts_parse_table_505; ts_parse_table_506;
   ts_parse_table_507; ts_parse_table_508; ts_parse_table_509; ts_parse_table_510;
   ts_parse_table_511; ts_parse_table_512; ts_parse_table_513
  ].
