(* ===== verification/ParseTable4.v ===== *)
(** * The parse table of [parser.c], states 514 to 699

    One definition for each row of [ts_parse_table], with the initializers of
    the row in the order of the source; consecutive initializers of the same
    value are one group. *)

From S2P Require Import Prelude.
From S2P Require Import Symbols.
From S2P Require Import ParseTypes.

(** State 514. *)
Definition ts_parse_table_514 : parse_row :=
  [STATE 6213 [sym_if]; STATE 6327 [sym_ifElse; sym_while; sym_repeat; sym_for; sym_foreach;
   sym_try; sym_case; sym_block; sym_asm; sym_with; sym_raise; sym_statement; sym_goto;
   sym__statement]; STATE 14607 [sym_ifTr; sym_ifElseTr; sym_whileTr; sym_repeatTr; sym_forTr;
   sym_foreachTr; sym_tryTr; sym_caseTr]; STATE 14251 [sym_blockTr]; STATE 14607 [sym_asmTr;
   sym_withTr; sym_raiseTr; sym_statementTr; sym_gotoTr; sym__statementTr];
   STATE 13915 [sym_assignment]; STATE 11785 [sym_varAssignDef]; STATE 13915 [sym_varDef;
   sym_constDef]; STATE 6166 [sym_label]; STATE 14607 [sym__statementsTr]; STATE 8019 [sym__expr;
   sym_exprConditional]; STATE 7478 [sym__ref; sym_lambda; sym_inherited; sym_exprDot;
   sym_exprDeref; sym_exprAs; sym_exprTpl; sym_exprSubscript; sym_exprCall];
   STATE 8019 [sym_exprBinary; sym_exprUnary]; STATE 7478 [sym_exprParens; sym_exprBrackets;
   sym__literal; sym_literalString]; STATE 6664 [sym__literalString; sym_literalChar];
   STATE 7478 [sym_literalNumber]; STATE 7742 [sym__literalInt; sym__literalFloat];
   STATE 1380 [sym__ppIf]; STATE 6327 [sym__ppStatementBlock];
   STATE 11840 [aux_sym_labeledStatement_repeat1]; STATE 863 [aux_sym__statementsTr_repeat1];
   STATE 6664 [aux_sym_literalString_repeat1]; ACTIONS 397 [anon_sym_SEMI];
   ACTIONS 399 [anon_sym_LBRACK]; ACTIONS 401 [anon_sym_LPAREN];
   ACTIONS 403 [aux_sym__literalString_token1]; ACTIONS 405 [anon_sym_POUND];
   ACTIONS 407 [aux_sym__literalInt_token1]; ACTIONS 409 [aux_sym__literalInt_token2;
   aux_sym__literalInt_token3]; ACTIONS 407 [aux_sym__literalFloat_token1];
   ACTIONS 411 [aux_sym_ppUsesBlock_token1]; ACTIONS 413 [sym_kAdd; sym_kSub];
   ACTIONS 415 [sym_kAt]; ACTIONS 417 [sym_kTrue; sym_kFalse]; ACTIONS 419 [sym_labelNumber];
   ACTIONS 3 [sym__space]; ACTIONS 5 [sym_ppDirective]; ACTIONS 3 [sym_comment];
   ACTIONS 417 [sym_ppFragmentExpr]; ACTIONS 397 [sym_ppFragmentStmt];
   ACTIONS 403 [sym__literalStringMultiline]; ACTIONS 421 [sym_identifier];
   ACTIONS 423 [sym_kSpecialize]; ACTIONS 427 [sym_kAsm]; ACTIONS 429 [sym_kBegin];
   ACTIONS 431 [sym_kCase]; ACTIONS 433 [sym_kConst]; ACTIONS 3360 [sym_kEnd];
   ACTIONS 437 [sym_kFor]; ACTIONS 439 [sym_kFunction]; ACTIONS 441 [sym_kGoto];
   ACTIONS 443 [sym_kIf]; ACTIONS 445 [sym_kInherited]; ACTIONS 417 [sym_kNil];
   ACTIONS 415 [sym_kNot]; ACTIONS 439 [sym_kProcedure]; ACTIONS 447 [sym_kRaise];
   ACTIONS 449 [sym_kRepeat]; ACTIONS 451 [sym_kString]; ACTIONS 453 [sym_kTry];
   ACTIONS 455 [sym_kVar]; ACTIONS 457 [sym_kWhile]; ACTIONS 459 [sym_kWith]].

(** State 515. *)
Definition ts_parse_table_515 : parse_row :=
  [STATE 6213 [sym_if]; STATE 6327 [sym_ifElse; sym_while; sym_repeat; sym_for; sym_foreach;
   sym_try; sym_case; sym_block; sym_asm; sym_with; sym_raise; sym_statement; sym_goto;
   sym__statement]; STATE 14630 [sym_ifTr; sym_ifElseTr; sym_whileTr; sym_repeatTr; sym_forTr;
   sym_foreachTr; sym_tryTr; sym_caseTr]; STATE 14251 [sym_blockTr]; STATE 14630 [sym_asmTr;
   sym_withTr; sym_raiseTr; sym_statementTr; sym_gotoTr; sym__statementTr];
   STATE 13915 [sym_assignment]; STATE 11785 [sym_varAssignDef]; STATE 13915 [sym_varDef;
   sym_constDef]; STATE 6166 [sym_label]; STATE 14630 [sym__statementsTr]; STATE 8019 [sym__expr;
   sym_exprConditional]; STATE 7478 [sym__ref; sym_lambda; sym_inherited; sym_exprDot;
   sym_exprDeref; sym_exprAs; sym_exprTpl; sym_exprSubscript; sym_exprCall];
   STATE 8019 [sym_exprBinary; sym_exprUnary]; STATE 7478 [sym_exprParens; sym_exprBrackets;
   sym__literal; sym_literalString]; STATE 6664 [sym__literalString; sym_literalChar];
   STATE 7478 [sym_literalNumber]; STATE 7742 [sym__literalInt; sym__literalFloat];
   STATE 1380 [sym__ppIf]; STATE 6327 [sym__ppStatementBlock];
   STATE 11840 [aux_sym_labeledStatement_repeat1]; STATE 863 [aux_sym__statementsTr_repeat1];
   STATE 6664 [aux_sym_literalString_repeat1]; ACTIONS 397 [anon_sym_SEMI];
   ACTIONS 399 [anon_sym_LBRACK]; ACTIONS 401 [anon_sym_LPAREN];
   ACTIONS 403 [aux_sym__literalString_token1]; ACTIONS 405 [anon_sym_POUND];
   ACTIONS 407 [aux_sym__literalInt_token1]; ACTIONS 409 [aux_sym__literalInt_token2;
   aux_sym__literalInt_token3]; ACTIONS 407 [aux_sym__literalFloat_token1];
   ACTIONS 411 [aux_sym_ppUsesBlock_token1]; ACTIONS 413 [sym_kAdd; sym_kSub];
   ACTIONS 415 [sym_kAt]; ACTIONS 417 [sym_kTrue; sym_kFalse]; ACTIONS 419 [sym_labelNumber];
   ACTIONS 3 [sym__space]; ACTIONS 5 [sym_ppDirective]; ACTIONS 3 [sym_comment];
   ACTIONS 417 [sym_ppFragmentExpr]; ACTIONS 397 [sym_ppFragmentStmt];
   ACTIONS 403 [sym__literalStringMultiline]; ACTIONS 421 [sym_identifier];
   ACTIONS 423 [sym_kSpecialize]; ACTIONS 427 [sym_kAsm]; ACTIONS 429 [sym_kBegin];
   ACTIONS 431 [sym_kCase]; ACTIONS 433 [sym_kConst]; ACTIONS 3362 [sym_kEnd];
   ACTIONS 437 [sym_kFor]; ACTIONS 439 [sym_kFunction]; ACTIONS 441 [sym_kGoto];
   ACTIONS 443 [sym_kIf]; ACTIONS 445 [sym_kInherited]; ACTIONS 417 [sym_kNil];
   ACTIONS 415 [sym_kNot]; ACTIONS 439 [sym_kProcedure]; ACTIONS 447 [sym_kRaise];
   ACTIONS 449 [sym_kRepeat]; ACTIONS 451 [sym_kString]; ACTIONS 453 [sym_kTry];
   ACTIONS 455 [sym_kVar]; ACTIONS 457 [sym_kWhile]; ACTIONS 459 [sym_kWith]].

(** State 516. *)
Definition ts_parse_table_516 : parse_row :=
  [STATE 6213 [sym_if]; STATE 6327 [sym_ifElse; sym_while; sym_repeat; sym_for; sym_foreach;
   sym_try; sym_case; sym_block; sym_asm; sym_with; sym_raise; sym_statement; sym_goto;
   sym__statement]; STATE 14669 [sym_ifTr; sym_ifElseTr; sym_whileTr; sym_repeatTr; sym_forTr;
   sym_foreachTr; sym_tryTr; sym_caseTr]; STATE 14251 [sym_blockTr]; STATE 14669 [sym_asmTr;
   sym_withTr; sym_raiseTr; sym_statementTr; sym_gotoTr; sym__statementTr];
   STATE 13915 [sym_assignment]; STATE 11785 [sym_varAssignDef]; STATE 13915 [sym_varDef;
   sym_constDef]; STATE 6166 [sym_label]; STATE 14669 [sym__statementsTr]; STATE 8019 [sym__expr;
   sym_exprConditional]; STATE 7478 [sym__ref; sym_lambda; sym_inherited; sym_exprDot;
   sym_exprDeref; sym_exprAs; sym_exprTpl; sym_exprSubscript; sym_exprCall];
   STATE 8019 [sym_exprBinary; sym_exprUnary]; STATE 7478 [sym_exprParens; sym_exprBrackets;
   sym__literal; sym_literalString]; STATE 6664 [sym__literalString; sym_literalChar];
   STATE 7478 [sym_literalNumber]; STATE 7742 [sym__literalInt; sym__literalFloat];
   STATE 1380 [sym__ppIf]; STATE 6327 [sym__ppStatementBlock];
   STATE 11840 [aux_sym_labeledStatement_repeat1]; STATE 863 [aux_sym__statementsTr_repeat1];
   STATE 6664 [aux_sym_literalString_repeat1]; ACTIONS 397 [anon_sym_SEMI];
   ACTIONS 399 [anon_sym_LBRACK]; ACTIONS 401 [anon_sym_LPAREN];
   ACTIONS 403 [aux_sym__literalString_token1]; ACTIONS 405 [anon_sym_POUND];
   ACTIONS 407 [aux_sym__literalInt_token1]; ACTIONS 409 [aux_sym__literalInt_token2;
   aux_sym__literalInt_token3]; ACTIONS 407 [aux_sym__literalFloat_token1];
   ACTIONS 411 [aux_sym_ppUsesBlock_token1]; ACTIONS 413 [sym_kAdd; sym_kSub];
   ACTIONS 415 [sym_kAt]; ACTIONS 417 [sym_kTrue; sym_kFalse]; ACTIONS 419 [sym_labelNumber];
   ACTIONS 3 [sym__space]; ACTIONS 5 [sym_ppDirective]; ACTIONS 3 [sym_comment];
   ACTIONS 417 [sym_ppFragmentExpr]; ACTIONS 397 [sym_ppFragmentStmt];
   ACTIONS 403 [sym__literalStringMultiline]; ACTIONS 421 [sym_identifier];
   ACTIONS 423 [sym_kSpecialize]; ACTIONS 427 [sym_kAsm]; ACTIONS 429 [sym_kBegin];
   ACTIONS 431 [sym_kCase]; ACTIONS 433 [sym_kConst]; ACTIONS 3364 [sym_kEnd];
   ACTIONS 437 [sym_kFor]; ACTIONS 439 [sym_kFunction]; ACTIONS 441 [sym_kGoto];
   ACTIONS 443 [sym_kIf]; ACTIONS 445 [sym_kInherited]; ACTIONS 417 [sym_kNil];
   ACTIONS 415 [sym_kNot]; ACTIONS 439 [sym_kProcedure]; ACTIONS 447 [sym_kRaise];
   ACTIONS 449 [sym_kRepeat]; ACTIONS 451 [sym_kString]; ACTIONS 453 [sym_kTry];
   ACTIONS 455 [sym_kVar]; ACTIONS 457 [sym_kWhile]; ACTIONS 459 [sym_kWith]].

(** State 517. *)
Definition ts_parse_table_517 : parse_row :=
  [STATE 17 [sym__ppIf]; STATE 635 [sym_ppBlock; sym_declVar]; STATE 5427 [sym_rttiAttributes];
   STATE 635 [aux_sym_declVars_repeat1]; STATE 5428 [aux_sym_declVar_repeat1];
   STATE 4094 [aux_sym_rttiAttributes_repeat2]; ACTIONS 3366 [anon_sym_SEMI; anon_sym_COMMA];
   ACTIONS 3368 [anon_sym_LBRACK]; ACTIONS 3371 [anon_sym_LPAREN];
   ACTIONS 3366 [aux_sym__literalString_token1; anon_sym_POUND];
   ACTIONS 3371 [aux_sym__literalInt_token1]; ACTIONS 3366 [aux_sym__literalInt_token2;
   aux_sym__literalInt_token3]; ACTIONS 3371 [aux_sym__literalFloat_token1];
   ACTIONS 3373 [aux_sym_ppUsesBlock_token1]; ACTIONS 3366 [aux_sym_ppUsesBlock_token2;
   aux_sym_ppUsesBlock_token3]; ACTIONS 3371 [sym_kAdd; sym_kSub]; ACTIONS 3366 [sym_kAt;
   sym_kTrue; sym_kFalse]; ACTIONS 3 [sym__space]; ACTIONS 5 [sym_ppDirective];
   ACTIONS 3 [sym_comment]; ACTIONS 3366 [sym_ppFragmentExpr; sym__literalStringMultiline];
   ACTIONS 3376 [sym_identifier]; ACTIONS 3379 [sym_kDefault; sym_kNodefault; sym_kDispId];
   ACTIONS 3366 [sym_kGeneric; sym_kSpecialize]; ACTIONS 3379 [sym_kOperator; sym_kPublic;
   sym_kStatic; sym_kVirtual; sym_kAbstract; sym_kDynamic; sym_kOverride; sym_kOverload;
   sym_kReintroduce; sym_kStdcall; sym_kCdecl; sym_kCppdecl; sym_kPascal; sym_kRegister;
   sym_kMwpascal; sym_kMessage; sym_kDeprecated; sym_kExperimental; sym_kPlatform;
   sym_kUnimplemented; sym_kCvar; sym_kExport; sym_kFar; sym_kNear; sym_kSafecall;
   sym_kAssembler; sym_kNostackframe; sym_kInterrupt; sym_kNoreturn; sym_kIocheck; sym_kLocal;
   sym_kHardfloat; sym_kSoftfloat; sym_kMs_abi_default; sym_kMs_abi_cdecl; sym_kSaveregisters;
   sym_kSysv_abi_default; sym_kSysv_abi_cdecl; sym_kVectorcall; sym_kVarargs; sym_kWinapi;
   sym_kAlias]; ACTIONS 3366 [sym_kAsm; sym_kBegin; sym_kCase; sym_kClass; sym_kConst;
   sym_kConstructor; sym_kDestructor; sym_kExports; sym_kFor; sym_kFunction; sym_kGoto; sym_kIf;
   sym_kInherited; sym_kLabel; sym_kNil; sym_kNot; sym_kProcedure; sym_kProperty; sym_kRaise;
   sym_kRepeat; sym_kResourcestring; sym_kString; sym_kThreadvar; sym_kTry; sym_kType; sym_kUses;
   sym_kVar; sym_kWhile; sym_kWith]].

(** State 518. *)
Definition ts_parse_table_518 : parse_row :=
  [STATE 6213 [sym_if]; STATE 6327 [sym_ifElse; sym_while; sym_repeat; sym_for; sym_foreach;
   sym_try; sym_case; sym_block; sym_asm; sym_with; sym_raise; sym_statement; sym_goto;
   sym__statement]; STATE 14842 [sym_ifTr; sym_ifElseTr; sym_whileTr; sym_repeatTr; sym_forTr;
   sym_foreachTr; sym_tryTr; sym_caseTr]; STATE 14251 [sym_blockTr]; STATE 14842 [sym_asmTr;
   sym_withTr; sym_raiseTr; sym_statementTr; sym_gotoTr; sym__statementTr];
   STATE 13915 [sym_assignment]; STATE 11785 [sym_varAssignDef]; STATE 13915 [sym_varDef;
   sym_constDef]; STATE 6166 [sym_label]; STATE 14842 [sym__statementsTr]; STATE 8019 [sym__expr;
   sym_exprConditional]; STATE 7478 [sym__ref; sym_lambda; sym_inherited; sym_exprDot;
   sym_exprDeref; sym_exprAs; sym_exprTpl; sym_exprSubscript; sym_exprCall];
   STATE 8019 [sym_exprBinary; sym_exprUnary]; STATE 7478 [sym_exprParens; sym_exprBrackets;
   sym__literal; sym_literalString]; STATE 6664 [sym__literalString; sym_literalChar];
   STATE 7478 [sym_literalNumber]; STATE 7742 [sym__literalInt; sym__literalFloat];
   STATE 1380 [sym__ppIf]; STATE 6327 [sym__ppStatementBlock];
   STATE 11840 [aux_sym_labeledStatement_repeat1]; STATE 863 [aux_sym__statementsTr_repeat1];
   STATE 6664 [aux_sym_literalString_repeat1]; ACTIONS 397 [anon_sym_SEMI];
   ACTIONS 399 [anon_sym_LBRACK]; ACTIONS 401 [anon_sym_LPAREN];
   ACTIONS 403 [aux_sym__literalString_token1]; ACTIONS 405 [anon_sym_POUND];
   ACTIONS 407 [aux_sym__literalInt_token1]; ACTIONS 409 [aux_sym__literalInt_token2;
   aux_sym__literalInt_token3]; ACTIONS 407 [aux_sym__literalFloat_token1];
   ACTIONS 411 [aux_sym_ppUsesBlock_token1]; ACTIONS 413 [sym_kAdd; sym_kSub];
   ACTIONS 415 [sym_kAt]; ACTIONS 417 [sym_kTrue; sym_kFalse]; ACTIONS 419 [sym_labelNumber];
   ACTIONS 3 [sym__space]; ACTIONS 5 [sym_ppDirective]; ACTIONS 3 [sym_comment];
   ACTIONS 417 [sym_ppFragmentExpr]; ACTIONS 397 [sym_ppFragmentStmt];
   ACTIONS 403 [sym__literalStringMultiline]; ACTIONS 421 [sym_identifier];
   ACTIONS 423 [sym_kSpecialize]; ACTIONS 427 [sym_kAsm]; ACTIONS 429 [sym_kBegin];
   ACTIONS 431 [sym_kCase]; ACTIONS 433 [sym_kConst]; ACTIONS 2178 [sym_kEnd];
   ACTIONS 437 [sym_kFor]; ACTIONS 439 [sym_kFunction]; ACTIONS 441 [sym_kGoto];
   ACTIONS 443 [sym_kIf]; ACTIONS 445 [sym_kInherited]; ACTIONS 417 [sym_kNil];
   ACTIONS 415 [sym_kNot]; ACTIONS 439 [sym_kProcedure]; ACTIONS 447 [sym_kRaise];
   ACTIONS 449 [sym_kRepeat]; ACTIONS 451 [sym_kString]; ACTIONS 453 [sym_kTry];
   ACTIONS 455 [sym_kVar]; ACTIONS 457 [sym_kWhile]; ACTIONS 459 [sym_kWith]].

(** State 519. *)
Definition ts_parse_table_519 : parse_row :=
  [STATE 6213 [sym_if]; STATE 6327 [sym_ifElse; sym_while; sym_repeat; sym_for; sym_foreach;
   sym_try; sym_case; sym_block; sym_asm; sym_with; sym_raise; sym_statement; sym_goto;
   sym__statement]; STATE 14848 [sym_ifTr; sym_ifElseTr; sym_whileTr; sym_repeatTr; sym_forTr;
   sym_foreachTr; sym_tryTr; sym_caseTr]; STATE 14251 [sym_blockTr]; STATE 14848 [sym_asmTr;
   sym_withTr; sym_raiseTr; sym_statementTr; sym_gotoTr; sym__statementTr];
   STATE 13915 [sym_assignment]; STATE 11785 [sym_varAssignDef]; STATE 13915 [sym_varDef;
   sym_constDef]; STATE 6166 [sym_label]; STATE 14848 [sym__statementsTr]; STATE 8019 [sym__expr;
   sym_exprConditional]; STATE 7478 [sym__ref; sym_lambda; sym_inherited; sym_exprDot;
   sym_exprDeref; sym_exprAs; sym_exprTpl; sym_exprSubscript; sym_exprCall];
   STATE 8019 [sym_exprBinary; sym_exprUnary]; STATE 7478 [sym_exprParens; sym_exprBrackets;
   sym__literal; sym_literalString]; STATE 6664 [sym__literalString; sym_literalChar];
   STATE 7478 [sym_literalNumber]; STATE 7742 [sym__literalInt; sym__literalFloat];
   STATE 1380 [sym__ppIf]; STATE 6327 [sym__ppStatementBlock];
   STATE 11840 [aux_sym_labeledStatement_repeat1]; STATE 863 [aux_sym__statementsTr_repeat1];
   STATE 6664 [aux_sym_literalString_repeat1]; ACTIONS 397 [anon_sym_SEMI];
   ACTIONS 399 [anon_sym_LBRACK]; ACTIONS 401 [anon_sym_LPAREN];
   ACTIONS 403 [aux_sym__literalString_token1]; ACTIONS 405 [anon_sym_POUND];
   ACTIONS 407 [aux_sym__literalInt_token1]; ACTIONS 409 [aux_sym__literalInt_token2;
   aux_sym__literalInt_token3]; ACTIONS 407 [aux_sym__literalFloat_token1];
   ACTIONS 411 [aux_sym_ppUsesBlock_token1]; ACTIONS 413 [sym_kAdd; sym_kSub];
   ACTIONS 415 [sym_kAt]; ACTIONS 417 [sym_kTrue; sym_kFalse]; ACTIONS 419 [sym_labelNumber];
   ACTIONS 3 [sym__space]; ACTIONS 5 [sym_ppDirective]; ACTIONS 3 [sym_comment];
   ACTIONS 417 [sym_ppFragmentExpr]; ACTIONS 397 [sym_ppFragmentStmt];
   ACTIONS 403 [sym__literalStringMultiline]; ACTIONS 421 [sym_identifier];
   ACTIONS 423 [sym_kSpecialize]; ACTIONS 427 [sym_kAsm]; ACTIONS 429 [sym_kBegin];
   ACTIONS 431 [sym_kCase]; ACTIONS 433 [sym_kConst]; ACTIONS 3382 [sym_kEnd];
   ACTIONS 437 [sym_kFor]; ACTIONS 439 [sym_kFunction]; ACTIONS 441 [sym_kGoto];
   ACTIONS 443 [sym_kIf]; ACTIONS 445 [sym_kInherited]; ACTIONS 417 [sym_kNil];
   ACTIONS 415 [sym_kNot]; ACTIONS 439 [sym_kProcedure]; ACTIONS 447 [sym_kRaise];
   ACTIONS 449 [sym_kRepeat]; ACTIONS 451 [sym_kString]; ACTIONS 453 [sym_kTry];
   ACTIONS 455 [sym_kVar]; ACTIONS 457 [sym_kWhile]; ACTIONS 459 [sym_kWith]].

(** State 520. *)
Definition ts_parse_table_520 : parse_row :=
  [STATE 6213 [sym_if]; STATE 6327 [sym_ifElse; sym_while; sym_repeat; sym_for; sym_foreach;
   sym_try; sym_case; sym_block; sym_asm; sym_with; sym_raise; sym_statement; sym_goto;
   sym__statement]; STATE 14865 [sym_ifTr; sym_ifElseTr; sym_whileTr; sym_repeatTr; sym_forTr;
   sym_foreachTr; sym_tryTr; sym_caseTr]; STATE 14251 [sym_blockTr]; STATE 14865 [sym_asmTr;
   sym_withTr; sym_raiseTr; sym_statementTr; sym_gotoTr; sym__statementTr];
   STATE 13915 [sym_assignment]; STATE 11785 [sym_varAssignDef]; STATE 13915 [sym_varDef;
   sym_constDef]; STATE 6166 [sym_label]; STATE 14865 [sym__statementsTr]; STATE 8019 [sym__expr;
   sym_exprConditional]; STATE 7478 [sym__ref; sym_lambda; sym_inherited; sym_exprDot;
   sym_exprDeref; sym_exprAs; sym_exprTpl; sym_exprSubscript; sym_exprCall];
   STATE 8019 [sym_exprBinary; sym_exprUnary]; STATE 7478 [sym_exprParens; sym_exprBrackets;
   sym__literal; sym_literalString]; STATE 6664 [sym__literalString; sym_literalChar];
   STATE 7478 [sym_literalNumber]; STATE 7742 [sym__literalInt; sym__literalFloat];
   STATE 1380 [sym__ppIf]; STATE 6327 [sym__ppStatementBlock];
   STATE 11840 [aux_sym_labeledStatement_repeat1]; STATE 863 [aux_sym__statementsTr_repeat1];
   STATE 6664 [aux_sym_literalString_repeat1]; ACTIONS 397 [anon_sym_SEMI];
   ACTIONS 399 [anon_sym_LBRACK]; ACTIONS 401 [anon_sym_LPAREN];
   ACTIONS 403 [aux_sym__literalString_token1]; ACTIONS 405 [anon_sym_POUND];
   ACTIONS 407 [aux_sym__literalInt_token1]; ACTIONS 409 [aux_sym__literalInt_token2;
   aux_sym__literalInt_token3]; ACTIONS 407 [aux_sym__literalFloat_token1];
   ACTIONS 411 [aux_sym_ppUsesBlock_token1]; ACTIONS 413 [sym_kAdd; sym_kSub];
   ACTIONS 415 [sym_kAt]; ACTIONS 417 [sym_kTrue; sym_kFalse]; ACTIONS 419 [sym_labelNumber];
   ACTIONS 3 [sym__space]; ACTIONS 5 [sym_ppDirective]; ACTIONS 3 [sym_comment];
   ACTIONS 417 [sym_ppFragmentExpr]; ACTIONS 397 [sym_ppFragmentStmt];
   ACTIONS 403 [sym__literalStringMultiline]; ACTIONS 421 [sym_identifier];
   ACTIONS 423 [sym_kSpecialize]; ACTIONS 427 [sym_kAsm]; ACTIONS 429 [sym_kBegin];
   ACTIONS 431 [sym_kCase]; ACTIONS 433 [sym_kConst]; ACTIONS 3384 [sym_kEnd];
   ACTIONS 437 [sym_kFor]; ACTIONS 439 [sym_kFunction]; ACTIONS 441 [sym_kGoto];
   ACTIONS 443 [sym_kIf]; ACTIONS 445 [sym_kInherited]; ACTIONS 417 [sym_kNil];
   ACTIONS 415 [sym_kNot]; ACTIONS 439 [sym_kProcedure]; ACTIONS 447 [sym_kRaise];
   ACTIONS 449 [sym_kRepeat]; ACTIONS 451 [sym_kString]; ACTIONS 453 [sym_kTry];
   ACTIONS 455 [sym_kVar]; ACTIONS 457 [sym_kWhile]; ACTIONS 459 [sym_kWith]].

(** State 521. *)
Definition ts_parse_table_521 : parse_row :=
  [STATE 6213 [sym_if]; STATE 6327 [sym_ifElse; sym_while; sym_repeat; sym_for; sym_foreach;
   sym_try; sym_case; sym_block; sym_asm; sym_with; sym_raise; sym_statement; sym_goto;
   sym__statement]; STATE 14876 [sym_ifTr; sym_ifElseTr; sym_whileTr; sym_repeatTr; sym_forTr;
   sym_foreachTr; sym_tryTr; sym_caseTr]; STATE 14251 [sym_blockTr]; STATE 14876 [sym_asmTr;
   sym_withTr; sym_raiseTr; sym_statementTr; sym_gotoTr; sym__statementTr];
   STATE 13915 [sym_assignment]; STATE 11785 [sym_varAssignDef]; STATE 13915 [sym_varDef;
   sym_constDef]; STATE 6166 [sym_label]; STATE 14876 [sym__statementsTr]; STATE 8019 [sym__expr;
   sym_exprConditional]; STATE 7478 [sym__ref; sym_lambda; sym_inherited; sym_exprDot;
   sym_exprDeref; sym_exprAs; sym_exprTpl; sym_exprSubscript; sym_exprCall];
   STATE 8019 [sym_exprBinary; sym_exprUnary]; STATE 7478 [sym_exprParens; sym_exprBrackets;
   sym__literal; sym_literalString]; STATE 6664 [sym__literalString; sym_literalChar];
   STATE 7478 [sym_literalNumber]; STATE 7742 [sym__literalInt; sym__literalFloat];
   STATE 1380 [sym__ppIf]; STATE 6327 [sym__ppStatementBlock];
   STATE 11840 [aux_sym_labeledStatement_repeat1]; STATE 863 [aux_sym__statementsTr_repeat1];
   STATE 6664 [aux_sym_literalString_repeat1]; ACTIONS 397 [anon_sym_SEMI];
   ACTIONS 399 [anon_sym_LBRACK]; ACTIONS 401 [anon_sym_LPAREN];
   ACTIONS 403 [aux_sym__literalString_token1]; ACTIONS 405 [anon_sym_POUND];
   ACTIONS 407 [aux_sym__literalInt_token1]; ACTIONS 409 [aux_sym__literalInt_token2;
   aux_sym__literalInt_token3]; ACTIONS 407 [aux_sym__literalFloat_token1];
   ACTIONS 411 [aux_sym_ppUsesBlock_token1]; ACTIONS 413 [sym_kAdd; sym_kSub];
   ACTIONS 415 [sym_kAt]; ACTIONS 417 [sym_kTrue; sym_kFalse]; ACTIONS 419 [sym_labelNumber];
   ACTIONS 3 [sym__space]; ACTIONS 5 [sym_ppDirective]; ACTIONS 3 [sym_comment];
   ACTIONS 417 [sym_ppFragmentExpr]; ACTIONS 397 [sym_ppFragmentStmt];
   ACTIONS 403 [sym__literalStringMultiline]; ACTIONS 421 [sym_identifier];
   ACTIONS 423 [sym_kSpecialize]; ACTIONS 427 [sym_kAsm]; ACTIONS 429 [sym_kBegin];
   ACTIONS 431 [sym_kCase]; ACTIONS 433 [sym_kConst]; ACTIONS 3386 [sym_kEnd];
   ACTIONS 437 [sym_kFor]; ACTIONS 439 [sym_kFunction]; ACTIONS 441 [sym_kGoto];
   ACTIONS 443 [sym_kIf]; ACTIONS 445 [sym_kInherited]; ACTIONS 417 [sym_kNil];
   ACTIONS 415 [sym_kNot]; ACTIONS 439 [sym_kProcedure]; ACTIONS 447 [sym_kRaise];
   ACTIONS 449 [sym_kRepeat]; ACTIONS 451 [sym_kString]; ACTIONS 453 [sym_kTry];
   ACTIONS 455 [sym_kVar]; ACTIONS 457 [sym_kWhile]; ACTIONS 459 [sym_kWith]].

(** State 522. *)
Definition ts_parse_table_522 : parse_row :=
  [STATE 6213 [sym_if]; STATE 6327 [sym_ifElse; sym_while; sym_repeat; sym_for; sym_foreach;
   sym_try; sym_case; sym_block; sym_asm; sym_with; sym_raise; sym_statement; sym_goto;
   sym__statement]; STATE 14317 [sym_ifTr; sym_ifElseTr; sym_whileTr; sym_repeatTr; sym_forTr;
   sym_foreachTr; sym_tryTr; sym_caseTr]; STATE 14251 [sym_blockTr]; STATE 14317 [sym_asmTr;
   sym_withTr; sym_raiseTr; sym_statementTr; sym_gotoTr; sym__statementTr];
   STATE 13915 [sym_assignment]; STATE 11785 [sym_varAssignDef]; STATE 13915 [sym_varDef;
   sym_constDef]; STATE 6166 [sym_label]; STATE 14317 [sym__statementsTr]; STATE 8019 [sym__expr;
   sym_exprConditional]; STATE 7478 [sym__ref; sym_lambda; sym_inherited; sym_exprDot;
   sym_exprDeref; sym_exprAs; sym_exprTpl; sym_exprSubscript; sym_exprCall];
   STATE 8019 [sym_exprBinary; sym_exprUnary]; STATE 7478 [sym_exprParens; sym_exprBrackets;
   sym__literal; sym_literalString]; STATE 6664 [sym__literalString; sym_literalChar];
   STATE 7478 [sym_literalNumber]; STATE 7742 [sym__literalInt; sym__literalFloat];
   STATE 1380 [sym__ppIf]; STATE 6327 [sym__ppStatementBlock];
   STATE 11840 [aux_sym_labeledStatement_repeat1]; STATE 863 [aux_sym__statementsTr_repeat1];
   STATE 6664 [aux_sym_literalString_repeat1]; ACTIONS 397 [anon_sym_SEMI];
   ACTIONS 399 [anon_sym_LBRACK]; ACTIONS 401 [anon_sym_LPAREN];
   ACTIONS 403 [aux_sym__literalString_token1]; ACTIONS 405 [anon_sym_POUND];
   ACTIONS 407 [aux_sym__literalInt_token1]; ACTIONS 409 [aux_sym__literalInt_token2;
   aux_sym__literalInt_token3]; ACTIONS 407 [aux_sym__literalFloat_token1];
   ACTIONS 411 [aux_sym_ppUsesBlock_token1]; ACTIONS 413 [sym_kAdd; sym_kSub];
   ACTIONS 415 [sym_kAt]; ACTIONS 417 [sym_kTrue; sym_kFalse]; ACTIONS 419 [sym_labelNumber];
   ACTIONS 3 [sym__space]; ACTIONS 5 [sym_ppDirective]; ACTIONS 3 [sym_comment];
   ACTIONS 417 [sym_ppFragmentExpr]; ACTIONS 397 [sym_ppFragmentStmt];
   ACTIONS 403 [sym__literalStringMultiline]; ACTIONS 421 [sym_identifier];
   ACTIONS 423 [sym_kSpecialize]; ACTIONS 427 [sym_kAsm]; ACTIONS 429 [sym_kBegin];
   ACTIONS 431 [sym_kCase]; ACTIONS 433 [sym_kConst]; ACTIONS 1224 [sym_kEnd];
   ACTIONS 437 [sym_kFor]; ACTIONS 439 [sym_kFunction]; ACTIONS 441 [sym_kGoto];
   ACTIONS 443 [sym_kIf]; ACTIONS 445 [sym_kInherited]; ACTIONS 417 [sym_kNil];
   ACTIONS 415 [sym_kNot]; ACTIONS 439 [sym_kProcedure]; ACTIONS 447 [sym_kRaise];
   ACTIONS 449 [sym_kRepeat]; ACTIONS 451 [sym_kString]; ACTIONS 453 [sym_kTry];
   ACTIONS 455 [sym_kVar]; ACTIONS 457 [sym_kWhile]; ACTIONS 459 [sym_kWith]].

(** State 523. *)
Definition ts_parse_table_523 : parse_row :=
  [STATE 6213 [sym_if]; STATE 6327 [sym_ifElse; sym_while; sym_repeat; sym_for; sym_foreach;
   sym_try; sym_case; sym_block; sym_asm; sym_with; sym_raise; sym_statement; sym_goto;
   sym__statement]; STATE 14569 [sym_ifTr; sym_ifElseTr; sym_whileTr; sym_repeatTr; sym_forTr;
   sym_foreachTr; sym_tryTr; sym_caseTr]; STATE 14251 [sym_blockTr]; STATE 14569 [sym_asmTr;
   sym_withTr; sym_raiseTr; sym_statementTr; sym_gotoTr; sym__statementTr];
   STATE 13915 [sym_assignment]; STATE 11785 [sym_varAssignDef]; STATE 13915 [sym_varDef;
   sym_constDef]; STATE 6166 [sym_label]; STATE 14569 [sym__statementsTr]; STATE 8019 [sym__expr;
   sym_exprConditional]; STATE 7478 [sym__ref; sym_lambda; sym_inherited; sym_exprDot;
   sym_exprDeref; sym_exprAs; sym_exprTpl; sym_exprSubscript; sym_exprCall];
   STATE 8019 [sym_exprBinary; sym_exprUnary]; STATE 7478 [sym_exprParens; sym_exprBrackets;
   sym__literal; sym_literalString]; STATE 6664 [sym__literalString; sym_literalChar];
   STATE 7478 [sym_literalNumber]; STATE 7742 [sym__literalInt; sym__literalFloat];
   STATE 1380 [sym__ppIf]; STATE 6327 [sym__ppStatementBlock];
   STATE 11840 [aux_sym_labeledStatement_repeat1]; STATE 863 [aux_sym__statementsTr_repeat1];
   STATE 6664 [aux_sym_literalString_repeat1]; ACTIONS 397 [anon_sym_SEMI];
   ACTIONS 399 [anon_sym_LBRACK]; ACTIONS 401 [anon_sym_LPAREN];
   ACTIONS 403 [aux_sym__literalString_token1]; ACTIONS 405 [anon_sym_POUND];
   ACTIONS 407 [aux_sym__literalInt_token1]; ACTIONS 409 [aux_sym__literalInt_token2;
   aux_sym__literalInt_token3]; ACTIONS 407 [aux_sym__literalFloat_token1];
   ACTIONS 411 [aux_sym_ppUsesBlock_token1]; ACTIONS 413 [sym_kAdd; sym_kSub];
   ACTIONS 415 [sym_kAt]; ACTIONS 417 [sym_kTrue; sym_kFalse]; ACTIONS 419 [sym_labelNumber];
   ACTIONS 3 [sym__space]; ACTIONS 5 [sym_ppDirective]; ACTIONS 3 [sym_comment];
   ACTIONS 417 [sym_ppFragmentExpr]; ACTIONS 397 [sym_ppFragmentStmt];
   ACTIONS 403 [sym__literalStringMultiline]; ACTIONS 421 [sym_identifier];
   ACTIONS 423 [sym_kSpecialize]; ACTIONS 427 [sym_kAsm]; ACTIONS 429 [sym_kBegin];
   ACTIONS 431 [sym_kCase]; ACTIONS 433 [sym_kConst]; ACTIONS 1228 [sym_kEnd];
   ACTIONS 437 [sym_kFor]; ACTIONS 439 [sym_kFunction]; ACTIONS 441 [sym_kGoto];
   ACTIONS 443 [sym_kIf]; ACTIONS 445 [sym_kInherited]; ACTIONS 417 [sym_kNil];
   ACTIONS 415 [sym_kNot]; ACTIONS 439 [sym_kProcedure]; ACTIONS 447 [sym_kRaise];
   ACTIONS 449 [sym_kRepeat]; ACTIONS 451 [sym_kString]; ACTIONS 453 [sym_kTry];
   ACTIONS 455 [sym_kVar]; ACTIONS 457 [sym_kWhile]; ACTIONS 459 [sym_kWith]].

(** State 524. *)
Definition ts_parse_table_524 : parse_row :=
  [STATE 6213 [sym_if]; STATE 6327 [sym_ifElse; sym_while; sym_repeat; sym_for; sym_foreach;
   sym_try; sym_case; sym_block; sym_asm; sym_with; sym_raise; sym_statement; sym_goto;
   sym__statement]; STATE 14992 [sym_ifTr; sym_ifElseTr; sym_whileTr; sym_repeatTr; sym_forTr;
   sym_foreachTr; sym_tryTr; sym_caseTr]; STATE 14251 [sym_blockTr]; STATE 14992 [sym_asmTr;
   sym_withTr; sym_raiseTr; sym_statementTr; sym_gotoTr; sym__statementTr];
   STATE 13915 [sym_assignment]; STATE 11785 [sym_varAssignDef]; STATE 13915 [sym_varDef;
   sym_constDef]; STATE 6166 [sym_label]; STATE 14992 [sym__statementsTr]; STATE 8019 [sym__expr;
   sym_exprConditional]; STATE 7478 [sym__ref; sym_lambda; sym_inherited; sym_exprDot;
   sym_exprDeref; sym_exprAs; sym_exprTpl; sym_exprSubscript; sym_exprCall];
   STATE 8019 [sym_exprBinary; sym_exprUnary]; STATE 7478 [sym_exprParens; sym_exprBrackets;
   sym__literal; sym_literalString]; STATE 6664 [sym__literalString; sym_literalChar];
   STATE 7478 [sym_literalNumber]; STATE 7742 [sym__literalInt; sym__literalFloat];
   STATE 1380 [sym__ppIf]; STATE 6327 [sym__ppStatementBlock];
   STATE 11840 [aux_sym_labeledStatement_repeat1]; STATE 863 [aux_sym__statementsTr_repeat1];
   STATE 6664 [aux_sym_literalString_repeat1]; ACTIONS 397 [anon_sym_SEMI];
   ACTIONS 399 [anon_sym_LBRACK]; ACTIONS 401 [anon_sym_LPAREN];
   ACTIONS 403 [aux_sym__literalString_token1]; ACTIONS 405 [anon_sym_POUND];
   ACTIONS 407 [aux_sym__literalInt_token1]; ACTIONS 409 [aux_sym__literalInt_token2;
   aux_sym__literalInt_token3]; ACTIONS 407 [aux_sym__literalFloat_token1];
   ACTIONS 411 [aux_sym_ppUsesBlock_token1]; ACTIONS 413 [sym_kAdd; sym_kSub];
   ACTIONS 415 [sym_kAt]; ACTIONS 417 [sym_kTrue; sym_kFalse]; ACTIONS 419 [sym_labelNumber];
   ACTIONS 3 [sym__space]; ACTIONS 5 [sym_ppDirective]; ACTIONS 3 [sym_comment];
   ACTIONS 417 [sym_ppFragmentExpr]; ACTIONS 397 [sym_ppFragmentStmt];
   ACTIONS 403 [sym__literalStringMultiline]; ACTIONS 421 [sym_identifier];
   ACTIONS 423 [sym_kSpecialize]; ACTIONS 427 [sym_kAsm]; ACTIONS 429 [sym_kBegin];
   ACTIONS 431 [sym_kCase]; ACTIONS 433 [sym_kConst]; ACTIONS 2190 [sym_kEnd];
   ACTIONS 437 [sym_kFor]; ACTIONS 439 [sym_kFunction]; ACTIONS 441 [sym_kGoto];
   ACTIONS 443 [sym_kIf]; ACTIONS 445 [sym_kInherited]; ACTIONS 417 [sym_kNil];
   ACTIONS 415 [sym_kNot]; ACTIONS 439 [sym_kProcedure]; ACTIONS 447 [sym_kRaise];
   ACTIONS 449 [sym_kRepeat]; ACTIONS 451 [sym_kString]; ACTIONS 453 [sym_kTry];
   ACTIONS 455 [sym_kVar]; ACTIONS 457 [sym_kWhile]; ACTIONS 459 [sym_kWith]].

(** State 525. *)
Definition ts_parse_table_525 : parse_row :=
  [STATE 6213 [sym_if]; STATE 6327 [sym_ifElse; sym_while; sym_repeat; sym_for; sym_foreach;
   sym_try; sym_case; sym_block; sym_asm; sym_with; sym_raise; sym_statement; sym_goto;
   sym__statement]; STATE 15001 [sym_ifTr; sym_ifElseTr; sym_whileTr; sym_repeatTr; sym_forTr;
   sym_foreachTr; sym_tryTr; sym_caseTr]; STATE 14251 [sym_blockTr]; STATE 15001 [sym_asmTr;
   sym_withTr; sym_raiseTr; sym_statementTr; sym_gotoTr; sym__statementTr];
   STATE 13915 [sym_assignment]; STATE 11785 [sym_varAssignDef]; STATE 13915 [sym_varDef;
   sym_constDef]; STATE 6166 [sym_label]; STATE 15001 [sym__statementsTr]; STATE 8019 [sym__expr;
   sym_exprConditional]; STATE 7478 [sym__ref; sym_lambda; sym_inherited; sym_exprDot;
   sym_exprDeref; sym_exprAs; sym_exprTpl; sym_exprSubscript; sym_exprCall];
   STATE 8019 [sym_exprBinary; sym_exprUnary]; STATE 7478 [sym_exprParens; sym_exprBrackets;
   sym__literal; sym_literalString]; STATE 6664 [sym__literalString; sym_literalChar];
   STATE 7478 [sym_literalNumber]; STATE 7742 [sym__literalInt; sym__literalFloat];
   STATE 1380 [sym__ppIf]; STATE 6327 [sym__ppStatementBlock];
   STATE 11840 [aux_sym_labeledStatement_repeat1]; STATE 863 [aux_sym__statementsTr_repeat1];
   STATE 6664 [aux_sym_literalString_repeat1]; ACTIONS 397 [anon_sym_SEMI];
   ACTIONS 399 [anon_sym_LBRACK]; ACTIONS 401 [anon_sym_LPAREN];
   ACTIONS 403 [aux_sym__literalString_token1]; ACTIONS 405 [anon_sym_POUND];
   ACTIONS 407 [aux_sym__literalInt_token1]; ACTIONS 409 [aux_sym__literalInt_token2;
   aux_sym__literalInt_token3]; ACTIONS 407 [aux_sym__literalFloat_token1];
   ACTIONS 411 [aux_sym_ppUsesBlock_token1]; ACTIONS 413 [sym_kAdd; sym_kSub];
   ACTIONS 415 [sym_kAt]; ACTIONS 417 [sym_kTrue; sym_kFalse]; ACTIONS 419 [sym_labelNumber];
   ACTIONS 3 [sym__space]; ACTIONS 5 [sym_ppDirective]; ACTIONS 3 [sym_comment];
   ACTIONS 417 [sym_ppFragmentExpr]; ACTIONS 397 [sym_ppFragmentStmt];
   ACTIONS 403 [sym__literalStringMultiline]; ACTIONS 421 [sym_identifier];
   ACTIONS 423 [sym_kSpecialize]; ACTIONS 427 [sym_kAsm]; ACTIONS 429 [sym_kBegin];
   ACTIONS 431 [sym_kCase]; ACTIONS 433 [sym_kConst]; ACTIONS 2194 [sym_kEnd];
   ACTIONS 437 [sym_kFor]; ACTIONS 439 [sym_kFunction]; ACTIONS 441 [sym_kGoto];
   ACTIONS 443 [sym_kIf]; ACTIONS 445 [sym_kInherited]; ACTIONS 417 [sym_kNil];
   ACTIONS 415 [sym_kNot]; ACTIONS 439 [sym_kProcedure]; ACTIONS 447 [sym_kRaise];
   ACTIONS 449 [sym_kRepeat]; ACTIONS 451 [sym_kString]; ACTIONS 453 [sym_kTry];
   ACTIONS 455 [sym_kVar]; ACTIONS 457 [sym_kWhile]; ACTIONS 459 [sym_kWith]].

(** State 526. *)
Definition ts_parse_table_526 : parse_row :=
  [STATE 6213 [sym_if]; STATE 6327 [sym_ifElse; sym_while; sym_repeat; sym_for; sym_foreach;
   sym_try; sym_case; sym_block; sym_asm; sym_with; sym_raise; sym_statement; sym_goto;
   sym__statement]; STATE 14735 [sym_ifTr; sym_ifElseTr; sym_whileTr; sym_repeatTr; sym_forTr;
   sym_foreachTr; sym_tryTr; sym_caseTr]; STATE 14251 [sym_blockTr]; STATE 14735 [sym_asmTr;
   sym_withTr; sym_raiseTr; sym_statementTr; sym_gotoTr; sym__statementTr];
   STATE 13915 [sym_assignment]; STATE 11785 [sym_varAssignDef]; STATE 13915 [sym_varDef;
   sym_constDef]; STATE 6166 [sym_label]; STATE 14735 [sym__statementsTr]; STATE 8019 [sym__expr;
   sym_exprConditional]; STATE 7478 [sym__ref; sym_lambda; sym_inherited; sym_exprDot;
   sym_exprDeref; sym_exprAs; sym_exprTpl; sym_exprSubscript; sym_exprCall];
   STATE 8019 [sym_exprBinary; sym_exprUnary]; STATE 7478 [sym_exprParens; sym_exprBrackets;
   sym__literal; sym_literalString]; STATE 6664 [sym__literalString; sym_literalChar];
   STATE 7478 [sym_literalNumber]; STATE 7742 [sym__literalInt; sym__literalFloat];
   STATE 1380 [sym__ppIf]; STATE 6327 [sym__ppStatementBlock];
   STATE 11840 [aux_sym_labeledStatement_repeat1]; STATE 863 [aux_sym__statementsTr_repeat1];
   STATE 6664 [aux_sym_literalString_repeat1]; ACTIONS 397 [anon_sym_SEMI];
   ACTIONS 399 [anon_sym_LBRACK]; ACTIONS 401 [anon_sym_LPAREN];
   ACTIONS 403 [aux_sym__literalString_token1]; ACTIONS 405 [anon_sym_POUND];
   ACTIONS 407 [aux_sym__literalInt_token1]; ACTIONS 409 [aux_sym__literalInt_token2;
   aux_sym__literalInt_token3]; ACTIONS 407 [aux_sym__literalFloat_token1];
   ACTIONS 411 [aux_sym_ppUsesBlock_token1]; ACTIONS 413 [sym_kAdd; sym_kSub];
   ACTIONS 415 [sym_kAt]; ACTIONS 417 [sym_kTrue; sym_kFalse]; ACTIONS 419 [sym_labelNumber];
   ACTIONS 3 [sym__space]; ACTIONS 5 [sym_ppDirective]; ACTIONS 3 [sym_comment];
   ACTIONS 417 [sym_ppFragmentExpr]; ACTIONS 397 [sym_ppFragmentStmt];
   ACTIONS 403 [sym__literalStringMultiline]; ACTIONS 421 [sym_identifier];
   ACTIONS 423 [sym_kSpecialize]; ACTIONS 427 [sym_kAsm]; ACTIONS 429 [sym_kBegin];
   ACTIONS 431 [sym_kCase]; ACTIONS 433 [sym_kConst]; ACTIONS 3388 [sym_kEnd];
   ACTIONS 437 [sym_kFor]; ACTIONS 439 [sym_kFunction]; ACTIONS 441 [sym_kGoto];
   ACTIONS 443 [sym_kIf]; ACTIONS 445 [sym_kInherited]; ACTIONS 417 [sym_kNil];
   ACTIONS 415 [sym_kNot]; ACTIONS 439 [sym_kProcedure]; ACTIONS 447 [sym_kRaise];
   ACTIONS 449 [sym_kRepeat]; ACTIONS 451 [sym_kString]; ACTIONS 453 [sym_kTry];
   ACTIONS 455 [sym_kVar]; ACTIONS 457 [sym_kWhile]; ACTIONS 459 [sym_kWith]].

(** State 527. *)
Definition ts_parse_table_527 : parse_row :=
  [STATE 6213 [sym_if]; STATE 6327 [sym_ifElse; sym_while; sym_repeat; sym_for; sym_foreach;
   sym_try; sym_case; sym_block; sym_asm; sym_with; sym_raise; sym_statement; sym_goto;
   sym__statement]; STATE 15005 [sym_ifTr; sym_ifElseTr; sym_whileTr; sym_repeatTr; sym_forTr;
   sym_foreachTr; sym_tryTr; sym_caseTr]; STATE 14251 [sym_blockTr]; STATE 15005 [sym_asmTr;
   sym_withTr; sym_raiseTr; sym_statementTr; sym_gotoTr; sym__statementTr];
   STATE 13915 [sym_assignment]; STATE 11785 [sym_varAssignDef]; STATE 13915 [sym_varDef;
   sym_constDef]; STATE 6166 [sym_label]; STATE 15005 [sym__statementsTr]; STATE 8019 [sym__expr;
   sym_exprConditional]; STATE 7478 [sym__ref; sym_lambda; sym_inherited; sym_exprDot;
   sym_exprDeref; sym_exprAs; sym_exprTpl; sym_exprSubscript; sym_exprCall];
   STATE 8019 [sym_exprBinary; sym_exprUnary]; STATE 7478 [sym_exprParens; sym_exprBrackets;
   sym__literal; sym_literalString]; STATE 6664 [sym__literalString; sym_literalChar];
   STATE 7478 [sym_literalNumber]; STATE 7742 [sym__literalInt; sym__literalFloat];
   STATE 1380 [sym__ppIf]; STATE 6327 [sym__ppStatementBlock];
   STATE 11840 [aux_sym_labeledStatement_repeat1]; STATE 863 [aux_sym__statementsTr_repeat1];
   STATE 6664 [aux_sym_literalString_repeat1]; ACTIONS 397 [anon_sym_SEMI];
   ACTIONS 399 [anon_sym_LBRACK]; ACTIONS 401 [anon_sym_LPAREN];
   ACTIONS 403 [aux_sym__literalString_token1]; ACTIONS 405 [anon_sym_POUND];
   ACTIONS 407 [aux_sym__literalInt_token1]; ACTIONS 409 [aux_sym__literalInt_token2;
   aux_sym__literalInt_token3]; ACTIONS 407 [aux_sym__literalFloat_token1];
   ACTIONS 411 [aux_sym_ppUsesBlock_token1]; ACTIONS 413 [sym_kAdd; sym_kSub];
   ACTIONS 415 [sym_kAt]; ACTIONS 417 [sym_kTrue; sym_kFalse]; ACTIONS 419 [sym_labelNumber];
   ACTIONS 3 [sym__space]; ACTIONS 5 [sym_ppDirective]; ACTIONS 3 [sym_comment];
   ACTIONS 417 [sym_ppFragmentExpr]; ACTIONS 397 [sym_ppFragmentStmt];
   ACTIONS 403 [sym__literalStringMultiline]; ACTIONS 421 [sym_identifier];
   ACTIONS 423 [sym_kSpecialize]; ACTIONS 427 [sym_kAsm]; ACTIONS 429 [sym_kBegin];
   ACTIONS 431 [sym_kCase]; ACTIONS 433 [sym_kConst]; ACTIONS 3390 [sym_kEnd];
   ACTIONS 437 [sym_kFor]; ACTIONS 439 [sym_kFunction]; ACTIONS 441 [sym_kGoto];
   ACTIONS 443 [sym_kIf]; ACTIONS 445 [sym_kInherited]; ACTIONS 417 [sym_kNil];
   ACTIONS 415 [sym_kNot]; ACTIONS 439 [sym_kProcedure]; ACTIONS 447 [sym_kRaise];
   ACTIONS 449 [sym_kRepeat]; ACTIONS 451 [sym_kString]; ACTIONS 453 [sym_kTry];
   ACTIONS 455 [sym_kVar]; ACTIONS 457 [sym_kWhile]; ACTIONS 459 [sym_kWith]].

(** State 528. *)
Definition ts_parse_table_528 : parse_row :=
  [STATE 6213 [sym_if]; STATE 6327 [sym_ifElse; sym_while; sym_repeat; sym_for; sym_foreach;
   sym_try; sym_case; sym_block; sym_asm; sym_with; sym_raise; sym_statement; sym_goto;
   sym__statement]; STATE 15026 [sym_ifTr; sym_ifElseTr; sym_whileTr; sym_repeatTr; sym_forTr;
   sym_foreachTr; sym_tryTr; sym_caseTr]; STATE 14251 [sym_blockTr]; STATE 15026 [sym_asmTr;
   sym_withTr; sym_raiseTr; sym_statementTr; sym_gotoTr; sym__statementTr];
   STATE 13915 [sym_assignment]; STATE 11785 [sym_varAssignDef]; STATE 13915 [sym_varDef;
   sym_constDef]; STATE 6166 [sym_label]; STATE 15026 [sym__statementsTr]; STATE 8019 [sym__expr;
   sym_exprConditional]; STATE 7478 [sym__ref; sym_lambda; sym_inherited; sym_exprDot;
   sym_exprDeref; sym_exprAs; sym_exprTpl; sym_exprSubscript; sym_exprCall];
   STATE 8019 [sym_exprBinary; sym_exprUnary]; STATE 7478 [sym_exprParens; sym_exprBrackets;
   sym__literal; sym_literalString]; STATE 6664 [sym__literalString; sym_literalChar];
   STATE 7478 [sym_literalNumber]; STATE 7742 [sym__literalInt; sym__literalFloat];
   STATE 1380 [sym__ppIf]; STATE 6327 [sym__ppStatementBlock];
   STATE 11840 [aux_sym_labeledStatement_repeat1]; STATE 863 [aux_sym__statementsTr_repeat1];
   STATE 6664 [aux_sym_literalString_repeat1]; ACTIONS 397 [anon_sym_SEMI];
   ACTIONS 399 [anon_sym_LBRACK]; ACTIONS 401 [anon_sym_LPAREN];
   ACTIONS 403 [aux_sym__literalString_token1]; ACTIONS 405 [anon_sym_POUND];
   ACTIONS 407 [aux_sym__literalInt_token1]; ACTIONS 409 [aux_sym__literalInt_token2;
   aux_sym__literalInt_token3]; ACTIONS 407 [aux_sym__literalFloat_token1];
   ACTIONS 411 [aux_sym_ppUsesBlock_token1]; ACTIONS 413 [sym_kAdd; sym_kSub];
   ACTIONS 415 [sym_kAt]; ACTIONS 417 [sym_kTrue; sym_kFalse]; ACTIONS 419 [sym_labelNumber];
   ACTIONS 3 [sym__space]; ACTIONS 5 [sym_ppDirective]; ACTIONS 3 [sym_comment];
   ACTIONS 417 [sym_ppFragmentExpr]; ACTIONS 397 [sym_ppFragmentStmt];
   ACTIONS 403 [sym__literalStringMultiline]; ACTIONS 421 [sym_identifier];
   ACTIONS 423 [sym_kSpecialize]; ACTIONS 427 [sym_kAsm]; ACTIONS 429 [sym_kBegin];
   ACTIONS 431 [sym_kCase]; ACTIONS 433 [sym_kConst]; ACTIONS 3392 [sym_kEnd];
   ACTIONS 437 [sym_kFor]; ACTIONS 439 [sym_kFunction]; ACTIONS 441 [sym_kGoto];
   ACTIONS 443 [sym_kIf]; ACTIONS 445 [sym_kInherited]; ACTIONS 417 [sym_kNil];
   ACTIONS 415 [sym_kNot]; ACTIONS 439 [sym_kProcedure]; ACTIONS 447 [sym_kRaise];
   ACTIONS 449 [sym_kRepeat]; ACTIONS 451 [sym_kString]; ACTIONS 453 [sym_kTry];
   ACTIONS 455 [sym_kVar]; ACTIONS 457 [sym_kWhile]; ACTIONS 459 [sym_kWith]].

(** State 529. *)
Definition ts_parse_table_529 : parse_row :=
  [STATE 6213 [sym_if]; STATE 6327 [sym_ifElse; sym_while; sym_repeat; sym_for; sym_foreach;
   sym_try; sym_case; sym_block; sym_asm; sym_with; sym_raise; sym_statement; sym_goto;
   sym__statement]; STATE 15031 [sym_ifTr; sym_ifElseTr; sym_whileTr; sym_repeatTr; sym_forTr;
   sym_foreachTr; sym_tryTr; sym_caseTr]; STATE 14251 [sym_blockTr]; STATE 15031 [sym_asmTr;
   sym_withTr; sym_raiseTr; sym_statementTr; sym_gotoTr; sym__statementTr];
   STATE 13915 [sym_assignment]; STATE 11785 [sym_varAssignDef]; STATE 13915 [sym_varDef;
   sym_constDef]; STATE 6166 [sym_label]; STATE 15031 [sym__statementsTr]; STATE 8019 [sym__expr;
   sym_exprConditional]; STATE 7478 [sym__ref; sym_lambda; sym_inherited; sym_exprDot;
   sym_exprDeref; sym_exprAs; sym_exprTpl; sym_exprSubscript; sym_exprCall];
   STATE 8019 [sym_exprBinary; sym_exprUnary]; STATE 7478 [sym_exprParens; sym_exprBrackets;
   sym__literal; sym_literalString]; STATE 6664 [sym__literalString; sym_literalChar];
   STATE 7478 [sym_literalNumber]; STATE 7742 [sym__literalInt; sym__literalFloat];
   STATE 1380 [sym__ppIf]; STATE 6327 [sym__ppStatementBlock];
   STATE 11840 [aux_sym_labeledStatement_repeat1]; STATE 863 [aux_sym__statementsTr_repeat1];
   STATE 6664 [aux_sym_literalString_repeat1]; ACTIONS 397 [anon_sym_SEMI];
   ACTIONS 399 [anon_sym_LBRACK]; ACTIONS 401 [anon_sym_LPAREN];
   ACTIONS 403 [aux_sym__literalString_token1]; ACTIONS 405 [anon_sym_POUND];
   ACTIONS 407 [aux_sym__literalInt_token1]; ACTIONS 409 [aux_sym__literalInt_token2;
   aux_sym__literalInt_token3]; ACTIONS 407 [aux_sym__literalFloat_token1];
   ACTIONS 411 [aux_sym_ppUsesBlock_token1]; ACTIONS 413 [sym_kAdd; sym_kSub];
   ACTIONS 415 [sym_kAt]; ACTIONS 417 [sym_kTrue; sym_kFalse]; ACTIONS 419 [sym_labelNumber];
   ACTIONS 3 [sym__space]; ACTIONS 5 [sym_ppDirective]; ACTIONS 3 [sym_comment];
   ACTIONS 417 [sym_ppFragmentExpr]; ACTIONS 397 [sym_ppFragmentStmt];
   ACTIONS 403 [sym__literalStringMultiline]; ACTIONS 421 [sym_identifier];
   ACTIONS 423 [sym_kSpecialize]; ACTIONS 427 [sym_kAsm]; ACTIONS 429 [sym_kBegin];
   ACTIONS 431 [sym_kCase]; ACTIONS 433 [sym_kConst]; ACTIONS 3394 [sym_kEnd];
   ACTIONS 437 [sym_kFor]; ACTIONS 439 [sym_kFunction]; ACTIONS 441 [sym_kGoto];
   ACTIONS 443 [sym_kIf]; ACTIONS 445 [sym_kInherited]; ACTIONS 417 [sym_kNil];
   ACTIONS 415 [sym_kNot]; ACTIONS 439 [sym_kProcedure]; ACTIONS 447 [sym_kRaise];
   ACTIONS 449 [sym_kRepeat]; ACTIONS 451 [sym_kString]; ACTIONS 453 [sym_kTry];
   ACTIONS 455 [sym_kVar]; ACTIONS 457 [sym_kWhile]; ACTIONS 459 [sym_kWith]].

(** State 530. *)
Definition ts_parse_table_530 : parse_row :=
  [STATE 5543 [sym_if]; STATE 5590 [sym_ifElse; sym_while; sym_repeat; sym_for; sym_foreach;
   sym_try; sym_case; sym_block; sym_asm; sym_with; sym_raise; sym_statement; sym_goto;
   sym_labeledStatement; sym__statement]; STATE 11611 [sym_ifTr; sym_ifElseTr; sym_whileTr;
   sym_repeatTr; sym_forTr; sym_foreachTr; sym_tryTr; sym_caseTr]; STATE 11564 [sym_blockTr];
   STATE 11611 [sym_asmTr; sym_withTr; sym_raiseTr; sym_statementTr; sym_gotoTr;
   sym_labeledStatementTr; sym__statementTr]; STATE 11516 [sym_assignment];
   STATE 11931 [sym_varAssignDef]; STATE 11516 [sym_varDef; sym_constDef]; STATE 758 [sym_label];
   STATE 7209 [sym__expr; sym_exprConditional]; STATE 6884 [sym__ref; sym_lambda; sym_inherited;
   sym_exprDot; sym_exprDeref; sym_exprAs; sym_exprTpl; sym_exprSubscript; sym_exprCall];
   STATE 7209 [sym_exprBinary; sym_exprUnary]; STATE 6884 [sym_exprParens; sym_exprBrackets;
   sym__literal; sym_literalString]; STATE 5959 [sym__literalString; sym_literalChar];
   STATE 6884 [sym_literalNumber]; STATE 6992 [sym__literalInt; sym__literalFloat];
   STATE 5959 [aux_sym_literalString_repeat1]; ACTIONS 3396 [anon_sym_SEMI];
   ACTIONS 3196 [anon_sym_LBRACK]; ACTIONS 3198 [anon_sym_LPAREN];
   ACTIONS 3200 [aux_sym__literalString_token1]; ACTIONS 3202 [anon_sym_POUND];
   ACTIONS 3204 [aux_sym__literalInt_token1]; ACTIONS 3206 [aux_sym__literalInt_token2;
   aux_sym__literalInt_token3]; ACTIONS 3204 [aux_sym__literalFloat_token1];
   ACTIONS 3208 [sym_kAdd; sym_kSub]; ACTIONS 3210 [sym_kAt]; ACTIONS 3212 [sym_kTrue;
   sym_kFalse]; ACTIONS 3214 [sym_labelNumber]; ACTIONS 3 [sym__space];
   ACTIONS 5 [sym_ppDirective]; ACTIONS 3 [sym_comment]; ACTIONS 3212 [sym_ppFragmentExpr];
   ACTIONS 3200 [sym__literalStringMultiline]; ACTIONS 3216 [sym_identifier];
   ACTIONS 3218 [sym_kSpecialize]; ACTIONS 3308 [sym_kAsm]; ACTIONS 3310 [sym_kBegin];
   ACTIONS 3312 [sym_kCase]; ACTIONS 3226 [sym_kConst]; ACTIONS 3398 [sym_kElse];
   ACTIONS 3230 [sym_kEnd; sym_kFinalization]; ACTIONS 3314 [sym_kFor];
   ACTIONS 3234 [sym_kFunction]; ACTIONS 3316 [sym_kGoto]; ACTIONS 3318 [sym_kIf];
   ACTIONS 3230 [sym_kImplementation]; ACTIONS 3240 [sym_kInherited];
   ACTIONS 3230 [sym_kInitialization; sym_kInterface]; ACTIONS 3212 [sym_kNil];
   ACTIONS 3210 [sym_kNot]; ACTIONS 3234 [sym_kProcedure]; ACTIONS 3320 [sym_kRaise];
   ACTIONS 3322 [sym_kRepeat]; ACTIONS 3246 [sym_kString]; ACTIONS 3324 [sym_kTry];
   ACTIONS 3250 [sym_kVar]; ACTIONS 3326 [sym_kWhile]; ACTIONS 3328 [sym_kWith]].

(** State 531. *)
Definition ts_parse_table_531 : parse_row :=
  [STATE 6213 [sym_if]; STATE 6327 [sym_ifElse; sym_while; sym_repeat; sym_for; sym_foreach;
   sym_try; sym_case; sym_block; sym_asm; sym_with; sym_raise; sym_statement; sym_goto;
   sym__statement]; STATE 15263 [sym_ifTr; sym_ifElseTr; sym_whileTr; sym_repeatTr; sym_forTr;
   sym_foreachTr; sym_tryTr; sym_caseTr]; STATE 14251 [sym_blockTr]; STATE 15263 [sym_asmTr;
   sym_withTr; sym_raiseTr; sym_statementTr; sym_gotoTr; sym__statementTr];
   STATE 13915 [sym_assignment]; STATE 11785 [sym_varAssignDef]; STATE 13915 [sym_varDef;
   sym_constDef]; STATE 6166 [sym_label]; STATE 15263 [sym__statementsTr]; STATE 8019 [sym__expr;
   sym_exprConditional]; STATE 7478 [sym__ref; sym_lambda; sym_inherited; sym_exprDot;
   sym_exprDeref; sym_exprAs; sym_exprTpl; sym_exprSubscript; sym_exprCall];
   STATE 8019 [sym_exprBinary; sym_exprUnary]; STATE 7478 [sym_exprParens; sym_exprBrackets;
   sym__literal; sym_literalString]; STATE 6664 [sym__literalString; sym_literalChar];
   STATE 7478 [sym_literalNumber]; STATE 7742 [sym__literalInt; sym__literalFloat];
   STATE 1380 [sym__ppIf]; STATE 6327 [sym__ppStatementBlock];
   STATE 11840 [aux_sym_labeledStatement_repeat1]; STATE 863 [aux_sym__statementsTr_repeat1];
   STATE 6664 [aux_sym_literalString_repeat1]; ACTIONS 397 [anon_sym_SEMI];
   ACTIONS 399 [anon_sym_LBRACK]; ACTIONS 401 [anon_sym_LPAREN];
   ACTIONS 403 [aux_sym__literalString_token1]; ACTIONS 405 [anon_sym_POUND];
   ACTIONS 407 [aux_sym__literalInt_token1]; ACTIONS 409 [aux_sym__literalInt_token2;
   aux_sym__literalInt_token3]; ACTIONS 407 [aux_sym__literalFloat_token1];
   ACTIONS 411 [aux_sym_ppUsesBlock_token1]; ACTIONS 413 [sym_kAdd; sym_kSub];
   ACTIONS 415 [sym_kAt]; ACTIONS 417 [sym_kTrue; sym_kFalse]; ACTIONS 419 [sym_labelNumber];
   ACTIONS 3 [sym__space]; ACTIONS 5 [sym_ppDirective]; ACTIONS 3 [sym_comment];
   ACTIONS 417 [sym_ppFragmentExpr]; ACTIONS 397 [sym_ppFragmentStmt];
   ACTIONS 403 [sym__literalStringMultiline]; ACTIONS 421 [sym_identifier];
   ACTIONS 423 [sym_kSpecialize]; ACTIONS 427 [sym_kAsm]; ACTIONS 429 [sym_kBegin];
   ACTIONS 431 [sym_kCase]; ACTIONS 433 [sym_kConst]; ACTIONS 3400 [sym_kEnd];
   ACTIONS 437 [sym_kFor]; ACTIONS 439 [sym_kFunction]; ACTIONS 441 [sym_kGoto];
   ACTIONS 443 [sym_kIf]; ACTIONS 445 [sym_kInherited]; ACTIONS 417 [sym_kNil];
   ACTIONS 415 [sym_kNot]; ACTIONS 439 [sym_kProcedure]; ACTIONS 447 [sym_kRaise];
   ACTIONS 449 [sym_kRepeat]; ACTIONS 451 [sym_kString]; ACTIONS 453 [sym_kTry];
   ACTIONS 455 [sym_kVar]; ACTIONS 457 [sym_kWhile]; ACTIONS 459 [sym_kWith]].

(** State 532. *)
Definition ts_parse_table_532 : parse_row :=
  [STATE 6213 [sym_if]; STATE 6327 [sym_ifElse; sym_while; sym_repeat; sym_for; sym_foreach;
   sym_try; sym_case; sym_block; sym_asm; sym_with; sym_raise; sym_statement; sym_goto;
   sym__statement]; STATE 16006 [sym_ifTr; sym_ifElseTr; sym_whileTr; sym_repeatTr; sym_forTr;
   sym_foreachTr; sym_tryTr; sym_caseTr]; STATE 14251 [sym_blockTr]; STATE 16006 [sym_asmTr;
   sym_withTr; sym_raiseTr; sym_statementTr; sym_gotoTr; sym__statementTr];
   STATE 13915 [sym_assignment]; STATE 11785 [sym_varAssignDef]; STATE 13915 [sym_varDef;
   sym_constDef]; STATE 6166 [sym_label]; STATE 16006 [sym__statementsTr]; STATE 8019 [sym__expr;
   sym_exprConditional]; STATE 7478 [sym__ref; sym_lambda; sym_inherited; sym_exprDot;
   sym_exprDeref; sym_exprAs; sym_exprTpl; sym_exprSubscript; sym_exprCall];
   STATE 8019 [sym_exprBinary; sym_exprUnary]; STATE 7478 [sym_exprParens; sym_exprBrackets;
   sym__literal; sym_literalString]; STATE 6664 [sym__literalString; sym_literalChar];
   STATE 7478 [sym_literalNumber]; STATE 7742 [sym__literalInt; sym__literalFloat];
   STATE 1380 [sym__ppIf]; STATE 6327 [sym__ppStatementBlock];
   STATE 11840 [aux_sym_labeledStatement_repeat1]; STATE 863 [aux_sym__statementsTr_repeat1];
   STATE 6664 [aux_sym_literalString_repeat1]; ACTIONS 397 [anon_sym_SEMI];
   ACTIONS 399 [anon_sym_LBRACK]; ACTIONS 401 [anon_sym_LPAREN];
   ACTIONS 403 [aux_sym__literalString_token1]; ACTIONS 405 [anon_sym_POUND];
   ACTIONS 407 [aux_sym__literalInt_token1]; ACTIONS 409 [aux_sym__literalInt_token2;
   aux_sym__literalInt_token3]; ACTIONS 407 [aux_sym__literalFloat_token1];
   ACTIONS 411 [aux_sym_ppUsesBlock_token1]; ACTIONS 413 [sym_kAdd; sym_kSub];
   ACTIONS 415 [sym_kAt]; ACTIONS 417 [sym_kTrue; sym_kFalse]; ACTIONS 419 [sym_labelNumber];
   ACTIONS 3 [sym__space]; ACTIONS 5 [sym_ppDirective]; ACTIONS 3 [sym_comment];
   ACTIONS 417 [sym_ppFragmentExpr]; ACTIONS 397 [sym_ppFragmentStmt];
   ACTIONS 403 [sym__literalStringMultiline]; ACTIONS 421 [sym_identifier];
   ACTIONS 423 [sym_kSpecialize]; ACTIONS 427 [sym_kAsm]; ACTIONS 429 [sym_kBegin];
   ACTIONS 431 [sym_kCase]; ACTIONS 433 [sym_kConst]; ACTIONS 3168 [sym_kEnd];
   ACTIONS 437 [sym_kFor]; ACTIONS 439 [sym_kFunction]; ACTIONS 441 [sym_kGoto];
   ACTIONS 443 [sym_kIf]; ACTIONS 445 [sym_kInherited]; ACTIONS 417 [sym_kNil];
   ACTIONS 415 [sym_kNot]; ACTIONS 439 [sym_kProcedure]; ACTIONS 447 [sym_kRaise];
   ACTIONS 449 [sym_kRepeat]; ACTIONS 451 [sym_kString]; ACTIONS 453 [sym_kTry];
   ACTIONS 455 [sym_kVar]; ACTIONS 457 [sym_kWhile]; ACTIONS 459 [sym_kWith]].

(** State 533. *)
Definition ts_parse_table_533 : parse_row :=
  [STATE 6213 [sym_if]; STATE 6327 [sym_ifElse; sym_while; sym_repeat; sym_for; sym_foreach;
   sym_try; sym_case; sym_block; sym_asm; sym_with; sym_raise; sym_statement; sym_goto;
   sym__statement]; STATE 15199 [sym_ifTr; sym_ifElseTr; sym_whileTr; sym_repeatTr; sym_forTr;
   sym_foreachTr; sym_tryTr; sym_caseTr]; STATE 14251 [sym_blockTr]; STATE 15199 [sym_asmTr;
   sym_withTr; sym_raiseTr; sym_statementTr; sym_gotoTr; sym__statementTr];
   STATE 13915 [sym_assignment]; STATE 11785 [sym_varAssignDef]; STATE 13915 [sym_varDef;
   sym_constDef]; STATE 6166 [sym_label]; STATE 15199 [sym__statementsTr]; STATE 8019 [sym__expr;
   sym_exprConditional]; STATE 7478 [sym__ref; sym_lambda; sym_inherited; sym_exprDot;
   sym_exprDeref; sym_exprAs; sym_exprTpl; sym_exprSubscript; sym_exprCall];
   STATE 8019 [sym_exprBinary; sym_exprUnary]; STATE 7478 [sym_exprParens; sym_exprBrackets;
   sym__literal; sym_literalString]; STATE 6664 [sym__literalString; sym_literalChar];
   STATE 7478 [sym_literalNumber]; STATE 7742 [sym__literalInt; sym__literalFloat];
   STATE 1380 [sym__ppIf]; STATE 6327 [sym__ppStatementBlock];
   STATE 11840 [aux_sym_labeledStatement_repeat1]; STATE 863 [aux_sym__statementsTr_repeat1];
   STATE 6664 [aux_sym_literalString_repeat1]; ACTIONS 397 [anon_sym_SEMI];
   ACTIONS 399 [anon_sym_LBRACK]; ACTIONS 401 [anon_sym_LPAREN];
   ACTIONS 403 [aux_sym__literalString_token1]; ACTIONS 405 [anon_sym_POUND];
   ACTIONS 407 [aux_sym__literalInt_token1]; ACTIONS 409 [aux_sym__literalInt_token2;
   aux_sym__literalInt_token3]; ACTIONS 407 [aux_sym__literalFloat_token1];
   ACTIONS 411 [aux_sym_ppUsesBlock_token1]; ACTIONS 413 [sym_kAdd; sym_kSub];
   ACTIONS 415 [sym_kAt]; ACTIONS 417 [sym_kTrue; sym_kFalse]; ACTIONS 419 [sym_labelNumber];
   ACTIONS 3 [sym__space]; ACTIONS 5 [sym_ppDirective]; ACTIONS 3 [sym_comment];
   ACTIONS 417 [sym_ppFragmentExpr]; ACTIONS 397 [sym_ppFragmentStmt];
   ACTIONS 403 [sym__literalStringMultiline]; ACTIONS 421 [sym_identifier];
   ACTIONS 423 [sym_kSpecialize]; ACTIONS 427 [sym_kAsm]; ACTIONS 429 [sym_kBegin];
   ACTIONS 431 [sym_kCase]; ACTIONS 433 [sym_kConst]; ACTIONS 2237 [sym_kEnd];
   ACTIONS 437 [sym_kFor]; ACTIONS 439 [sym_kFunction]; ACTIONS 441 [sym_kGoto];
   ACTIONS 443 [sym_kIf]; ACTIONS 445 [sym_kInherited]; ACTIONS 417 [sym_kNil];
   ACTIONS 415 [sym_kNot]; ACTIONS 439 [sym_kProcedure]; ACTIONS 447 [sym_kRaise];
   ACTIONS 449 [sym_kRepeat]; ACTIONS 451 [sym_kString]; ACTIONS 453 [sym_kTry];
   ACTIONS 455 [sym_kVar]; ACTIONS 457 [sym_kWhile]; ACTIONS 459 [sym_kWith]].

(** State 534. *)
Definition ts_parse_table_534 : parse_row :=
  [STATE 6213 [sym_if]; STATE 6327 [sym_ifElse; sym_while; sym_repeat; sym_for; sym_foreach;
   sym_try; sym_case; sym_block; sym_asm; sym_with; sym_raise; sym_statement; sym_goto;
   sym__statement]; STATE 15463 [sym_ifTr; sym_ifElseTr; sym_whileTr; sym_repeatTr; sym_forTr;
   sym_foreachTr; sym_tryTr; sym_caseTr]; STATE 14251 [sym_blockTr]; STATE 15463 [sym_asmTr;
   sym_withTr; sym_raiseTr; sym_statementTr; sym_gotoTr; sym__statementTr];
   STATE 13915 [sym_assignment]; STATE 11785 [sym_varAssignDef]; STATE 13915 [sym_varDef;
   sym_constDef]; STATE 6166 [sym_label]; STATE 15463 [sym__statementsTr]; STATE 8019 [sym__expr;
   sym_exprConditional]; STATE 7478 [sym__ref; sym_lambda; sym_inherited; sym_exprDot;
   sym_exprDeref; sym_exprAs; sym_exprTpl; sym_exprSubscript; sym_exprCall];
   STATE 8019 [sym_exprBinary; sym_exprUnary]; STATE 7478 [sym_exprParens; sym_exprBrackets;
   sym__literal; sym_literalString]; STATE 6664 [sym__literalString; sym_literalChar];
   STATE 7478 [sym_literalNumber]; STATE 7742 [sym__literalInt; sym__literalFloat];
   STATE 1380 [sym__ppIf]; STATE 6327 [sym__ppStatementBlock];
   STATE 11840 [aux_sym_labeledStatement_repeat1]; STATE 863 [aux_sym__statementsTr_repeat1];
   STATE 6664 [aux_sym_literalString_repeat1]; ACTIONS 397 [anon_sym_SEMI];
   ACTIONS 399 [anon_sym_LBRACK]; ACTIONS 401 [anon_sym_LPAREN];
   ACTIONS 403 [aux_sym__literalString_token1]; ACTIONS 405 [anon_sym_POUND];
   ACTIONS 407 [aux_sym__literalInt_token1]; ACTIONS 409 [aux_sym__literalInt_token2;
   aux_sym__literalInt_token3]; ACTIONS 407 [aux_sym__literalFloat_token1];
   ACTIONS 411 [aux_sym_ppUsesBlock_token1]; ACTIONS 413 [sym_kAdd; sym_kSub];
   ACTIONS 415 [sym_kAt]; ACTIONS 417 [sym_kTrue; sym_kFalse]; ACTIONS 419 [sym_labelNumber];
   ACTIONS 3 [sym__space]; ACTIONS 5 [sym_ppDirective]; ACTIONS 3 [sym_comment];
   ACTIONS 417 [sym_ppFragmentExpr]; ACTIONS 397 [sym_ppFragmentStmt];
   ACTIONS 403 [sym__literalStringMultiline]; ACTIONS 421 [sym_identifier];
   ACTIONS 423 [sym_kSpecialize]; ACTIONS 427 [sym_kAsm]; ACTIONS 429 [sym_kBegin];
   ACTIONS 431 [sym_kCase]; ACTIONS 433 [sym_kConst]; ACTIONS 3402 [sym_kEnd];
   ACTIONS 437 [sym_kFor]; ACTIONS 439 [sym_kFunction]; ACTIONS 441 [sym_kGoto];
   ACTIONS 443 [sym_kIf]; ACTIONS 445 [sym_kInherited]; ACTIONS 417 [sym_kNil];
   ACTIONS 415 [sym_kNot]; ACTIONS 439 [sym_kProcedure]; ACTIONS 447 [sym_kRaise];
   ACTIONS 449 [sym_kRepeat]; ACTIONS 451 [sym_kString]; ACTIONS 453 [sym_kTry];
   ACTIONS 455 [sym_kVar]; ACTIONS 457 [sym_kWhile]; ACTIONS 459 [sym_kWith]].

(** State 535. *)
Definition ts_parse_table_535 : parse_row :=
  [STATE 6213 [sym_if]; STATE 6327 [sym_ifElse; sym_while; sym_repeat; sym_for; sym_foreach;
   sym_try; sym_case; sym_block; sym_asm; sym_with; sym_raise; sym_statement; sym_goto;
   sym__statement]; STATE 15206 [sym_ifTr; sym_ifElseTr; sym_whileTr; sym_repeatTr; sym_forTr;
   sym_foreachTr; sym_tryTr; sym_caseTr]; STATE 14251 [sym_blockTr]; STATE 15206 [sym_asmTr;
   sym_withTr; sym_raiseTr; sym_statementTr; sym_gotoTr; sym__statementTr];
   STATE 13915 [sym_assignment]; STATE 11785 [sym_varAssignDef]; STATE 13915 [sym_varDef;
   sym_constDef]; STATE 6166 [sym_label]; STATE 15206 [sym__statementsTr]; STATE 8019 [sym__expr;
   sym_exprConditional]; STATE 7478 [sym__ref; sym_lambda; sym_inherited; sym_exprDot;
   sym_exprDeref; sym_exprAs; sym_exprTpl; sym_exprSubscript; sym_exprCall];
   STATE 8019 [sym_exprBinary; sym_exprUnary]; STATE 7478 [sym_exprParens; sym_exprBrackets;
   sym__literal; sym_literalString]; STATE 6664 [sym__literalString; sym_literalChar];
   STATE 7478 [sym_literalNumber]; STATE 7742 [sym__literalInt; sym__literalFloat];
   STATE 1380 [sym__ppIf]; STATE 6327 [sym__ppStatementBlock];
   STATE 11840 [aux_sym_labeledStatement_repeat1]; STATE 863 [aux_sym__statementsTr_repeat1];
   STATE 6664 [aux_sym_literalString_repeat1]; ACTIONS 397 [anon_sym_SEMI];
   ACTIONS 399 [anon_sym_LBRACK]; ACTIONS 401 [anon_sym_LPAREN];
   ACTIONS 403 [aux_sym__literalString_token1]; ACTIONS 405 [anon_sym_POUND];
   ACTIONS 407 [aux_sym__literalInt_token1]; ACTIONS 409 [aux_sym__literalInt_token2;
   aux_sym__literalInt_token3]; ACTIONS 407 [aux_sym__literalFloat_token1];
   ACTIONS 411 [aux_sym_ppUsesBlock_token1]; ACTIONS 413 [sym_kAdd; sym_kSub];
   ACTIONS 415 [sym_kAt]; ACTIONS 417 [sym_kTrue; sym_kFalse]; ACTIONS 419 [sym_labelNumber];
   ACTIONS 3 [sym__space]; ACTIONS 5 [sym_ppDirective]; ACTIONS 3 [sym_comment];
   ACTIONS 417 [sym_ppFragmentExpr]; ACTIONS 397 [sym_ppFragmentStmt];
   ACTIONS 403 [sym__literalStringMultiline]; ACTIONS 421 [sym_identifier];
   ACTIONS 423 [sym_kSpecialize]; ACTIONS 427 [sym_kAsm]; ACTIONS 429 [sym_kBegin];
   ACTIONS 431 [sym_kCase]; ACTIONS 433 [sym_kConst]; ACTIONS 3404 [sym_kEnd];
   ACTIONS 437 [sym_kFor]; ACTIONS 439 [sym_kFunction]; ACTIONS 441 [sym_kGoto];
   ACTIONS 443 [sym_kIf]; ACTIONS 445 [sym_kInherited]; ACTIONS 417 [sym_kNil];
   ACTIONS 415 [sym_kNot]; ACTIONS 439 [sym_kProcedure]; ACTIONS 447 [sym_kRaise];
   ACTIONS 449 [sym_kRepeat]; ACTIONS 451 [sym_kString]; ACTIONS 453 [sym_kTry];
   ACTIONS 455 [sym_kVar]; ACTIONS 457 [sym_kWhile]; ACTIONS 459 [sym_kWith]].

(** State 536. *)
Definition ts_parse_table_536 : parse_row :=
  [STATE 6213 [sym_if]; STATE 6327 [sym_ifElse; sym_while; sym_repeat; sym_for; sym_foreach;
   sym_try; sym_case; sym_block; sym_asm; sym_with; sym_raise; sym_statement; sym_goto;
   sym__statement]; STATE 15234 [sym_ifTr; sym_ifElseTr; sym_whileTr; sym_repeatTr; sym_forTr;
   sym_foreachTr; sym_tryTr; sym_caseTr]; STATE 14251 [sym_blockTr]; STATE 15234 [sym_asmTr;
   sym_withTr; sym_raiseTr; sym_statementTr; sym_gotoTr; sym__statementTr];
   STATE 13915 [sym_assignment]; STATE 11785 [sym_varAssignDef]; STATE 13915 [sym_varDef;
   sym_constDef]; STATE 6166 [sym_label]; STATE 15234 [sym__statementsTr]; STATE 8019 [sym__expr;
   sym_exprConditional]; STATE 7478 [sym__ref; sym_lambda; sym_inherited; sym_exprDot;
   sym_exprDeref; sym_exprAs; sym_exprTpl; sym_exprSubscript; sym_exprCall];
   STATE 8019 [sym_exprBinary; sym_exprUnary]; STATE 7478 [sym_exprParens; sym_exprBrackets;
   sym__literal; sym_literalString]; STATE 6664 [sym__literalString; sym_literalChar];
   STATE 7478 [sym_literalNumber]; STATE 7742 [sym__literalInt; sym__literalFloat];
   STATE 1380 [sym__ppIf]; STATE 6327 [sym__ppStatementBlock];
   STATE 11840 [aux_sym_labeledStatement_repeat1]; STATE 863 [aux_sym__statementsTr_repeat1];
   STATE 6664 [aux_sym_literalString_repeat1]; ACTIONS 397 [anon_sym_SEMI];
   ACTIONS 399 [anon_sym_LBRACK]; ACTIONS 401 [anon_sym_LPAREN];
   ACTIONS 403 [aux_sym__literalString_token1]; ACTIONS 405 [anon_sym_POUND];
   ACTIONS 407 [aux_sym__literalInt_token1]; ACTIONS 409 [aux_sym__literalInt_token2;
   aux_sym__literalInt_token3]; ACTIONS 407 [aux_sym__literalFloat_token1];
   ACTIONS 411 [aux_sym_ppUsesBlock_token1]; ACTIONS 413 [sym_kAdd; sym_kSub];
   ACTIONS 415 [sym_kAt]; ACTIONS 417 [sym_kTrue; sym_kFalse]; ACTIONS 419 [sym_labelNumber];
   ACTIONS 3 [sym__space]; ACTIONS 5 [sym_ppDirective]; ACTIONS 3 [sym_comment];
   ACTIONS 417 [sym_ppFragmentExpr]; ACTIONS 397 [sym_ppFragmentStmt];
   ACTIONS 403 [sym__literalStringMultiline]; ACTIONS 421 [sym_identifier];
   ACTIONS 423 [sym_kSpecialize]; ACTIONS 427 [sym_kAsm]; ACTIONS 429 [sym_kBegin];
   ACTIONS 431 [sym_kCase]; ACTIONS 433 [sym_kConst]; ACTIONS 3406 [sym_kEnd];
   ACTIONS 437 [sym_kFor]; ACTIONS 439 [sym_kFunction]; ACTIONS 441 [sym_kGoto];
   ACTIONS 443 [sym_kIf]; ACTIONS 445 [sym_kInherited]; ACTIONS 417 [sym_kNil];
   ACTIONS 415 [sym_kNot]; ACTIONS 439 [sym_kProcedure]; ACTIONS 447 [sym_kRaise];
   ACTIONS 449 [sym_kRepeat]; ACTIONS 451 [sym_kString]; ACTIONS 453 [sym_kTry];
   ACTIONS 455 [sym_kVar]; ACTIONS 457 [sym_kWhile]; ACTIONS 459 [sym_kWith]].

(** State 537. *)
Definition ts_parse_table_537 : parse_row :=
  [STATE 6213 [sym_if]; STATE 6327 [sym_ifElse; sym_while; sym_repeat; sym_for; sym_foreach;
   sym_try; sym_case; sym_block; sym_asm; sym_with; sym_raise; sym_statement; sym_goto;
   sym__statement]; STATE 15246 [sym_ifTr; sym_ifElseTr; sym_whileTr; sym_repeatTr; sym_forTr;
   sym_foreachTr; sym_tryTr; sym_caseTr]; STATE 14251 [sym_blockTr]; STATE 15246 [sym_asmTr;
   sym_withTr; sym_raiseTr; sym_statementTr; sym_gotoTr; sym__statementTr];
   STATE 13915 [sym_assignment]; STATE 11785 [sym_varAssignDef]; STATE 13915 [sym_varDef;
   sym_constDef]; STATE 6166 [sym_label]; STATE 15246 [sym__statementsTr]; STATE 8019 [sym__expr;
   sym_exprConditional]; STATE 7478 [sym__ref; sym_lambda; sym_inherited; sym_exprDot;
   sym_exprDeref; sym_exprAs; sym_exprTpl; sym_exprSubscript; sym_exprCall];
   STATE 8019 [sym_exprBinary; sym_exprUnary]; STATE 7478 [sym_exprParens; sym_exprBrackets;
   sym__literal; sym_literalString]; STATE 6664 [sym__literalString; sym_literalChar];
   STATE 7478 [sym_literalNumber]; STATE 7742 [sym__literalInt; sym__literalFloat];
   STATE 1380 [sym__ppIf]; STATE 6327 [sym__ppStatementBlock];
   STATE 11840 [aux_sym_labeledStatement_repeat1]; STATE 863 [aux_sym__statementsTr_repeat1];
   STATE 6664 [aux_sym_literalString_repeat1]; ACTIONS 397 [anon_sym_SEMI];
   ACTIONS 399 [anon_sym_LBRACK]; ACTIONS 401 [anon_sym_LPAREN];
   ACTIONS 403 [aux_sym__literalString_token1]; ACTIONS 405 [anon_sym_POUND];
   ACTIONS 407 [aux_sym__literalInt_token1]; ACTIONS 409 [aux_sym__literalInt_token2;
   aux_sym__literalInt_token3]; ACTIONS 407 [aux_sym__literalFloat_token1];
   ACTIONS 411 [aux_sym_ppUsesBlock_token1]; ACTIONS 413 [sym_kAdd; sym_kSub];
   ACTIONS 415 [sym_kAt]; ACTIONS 417 [sym_kTrue; sym_kFalse]; ACTIONS 419 [sym_labelNumber];
   ACTIONS 3 [sym__space]; ACTIONS 5 [sym_ppDirective]; ACTIONS 3 [sym_comment];
   ACTIONS 417 [sym_ppFragmentExpr]; ACTIONS 397 [sym_ppFragmentStmt];
   ACTIONS 403 [sym__literalStringMultiline]; ACTIONS 421 [sym_identifier];
   ACTIONS 423 [sym_kSpecialize]; ACTIONS 427 [sym_kAsm]; ACTIONS 429 [sym_kBegin];
   ACTIONS 431 [sym_kCase]; ACTIONS 433 [sym_kConst]; ACTIONS 3408 [sym_kEnd];
   ACTIONS 437 [sym_kFor]; ACTIONS 439 [sym_kFunction]; ACTIONS 441 [sym_kGoto];
   ACTIONS 443 [sym_kIf]; ACTIONS 445 [sym_kInherited]; ACTIONS 417 [sym_kNil];
   ACTIONS 415 [sym_kNot]; ACTIONS 439 [sym_kProcedure]; ACTIONS 447 [sym_kRaise];
   ACTIONS 449 [sym_kRepeat]; ACTIONS 451 [sym_kString]; ACTIONS 453 [sym_kTry];
   ACTIONS 455 [sym_kVar]; ACTIONS 457 [sym_kWhile]; ACTIONS 459 [sym_kWith]].

(** State 538. *)
Definition ts_parse_table_538 : parse_row :=
  [STATE 6213 [sym_if]; STATE 6327 [sym_ifElse; sym_while; sym_repeat; sym_for; sym_foreach;
   sym_try; sym_case; sym_block; sym_asm; sym_with; sym_raise; sym_statement; sym_goto;
   sym__statement]; STATE 15945 [sym_ifTr; sym_ifElseTr; sym_whileTr; sym_repeatTr; sym_forTr;
   sym_foreachTr; sym_tryTr; sym_caseTr]; STATE 14251 [sym_blockTr]; STATE 15945 [sym_asmTr;
   sym_withTr; sym_raiseTr; sym_statementTr; sym_gotoTr; sym__statementTr];
   STATE 13915 [sym_assignment]; STATE 11785 [sym_varAssignDef]; STATE 13915 [sym_varDef;
   sym_constDef]; STATE 6166 [sym_label]; STATE 15945 [sym__statementsTr]; STATE 8019 [sym__expr;
   sym_exprConditional]; STATE 7478 [sym__ref; sym_lambda; sym_inherited; sym_exprDot;
   sym_exprDeref; sym_exprAs; sym_exprTpl; sym_exprSubscript; sym_exprCall];
   STATE 8019 [sym_exprBinary; sym_exprUnary]; STATE 7478 [sym_exprParens; sym_exprBrackets;
   sym__literal; sym_literalString]; STATE 6664 [sym__literalString; sym_literalChar];
   STATE 7478 [sym_literalNumber]; STATE 7742 [sym__literalInt; sym__literalFloat];
   STATE 1380 [sym__ppIf]; STATE 6327 [sym__ppStatementBlock];
   STATE 11840 [aux_sym_labeledStatement_repeat1]; STATE 863 [aux_sym__statementsTr_repeat1];
   STATE 6664 [aux_sym_literalString_repeat1]; ACTIONS 397 [anon_sym_SEMI];
   ACTIONS 399 [anon_sym_LBRACK]; ACTIONS 401 [anon_sym_LPAREN];
   ACTIONS 403 [aux_sym__literalString_token1]; ACTIONS 405 [anon_sym_POUND];
   ACTIONS 407 [aux_sym__literalInt_token1]; ACTIONS 409 [aux_sym__literalInt_token2;
   aux_sym__literalInt_token3]; ACTIONS 407 [aux_sym__literalFloat_token1];
   ACTIONS 411 [aux_sym_ppUsesBlock_token1]; ACTIONS 413 [sym_kAdd; sym_kSub];
   ACTIONS 415 [sym_kAt]; ACTIONS 417 [sym_kTrue; sym_kFalse]; ACTIONS 419 [sym_labelNumber];
   ACTIONS 3 [sym__space]; ACTIONS 5 [sym_ppDirective]; ACTIONS 3 [sym_comment];
   ACTIONS 417 [sym_ppFragmentExpr]; ACTIONS 397 [sym_ppFragmentStmt];
   ACTIONS 403 [sym__literalStringMultiline]; ACTIONS 421 [sym_identifier];
   ACTIONS 423 [sym_kSpecialize]; ACTIONS 427 [sym_kAsm]; ACTIONS 429 [sym_kBegin];
   ACTIONS 431 [sym_kCase]; ACTIONS 433 [sym_kConst]; ACTIONS 1236 [sym_kEnd];
   ACTIONS 437 [sym_kFor]; ACTIONS 439 [sym_kFunction]; ACTIONS 441 [sym_kGoto];
   ACTIONS 443 [sym_kIf]; ACTIONS 445 [sym_kInherited]; ACTIONS 417 [sym_kNil];
   ACTIONS 415 [sym_kNot]; ACTIONS 439 [sym_kProcedure]; ACTIONS 447 [sym_kRaise];
   ACTIONS 449 [sym_kRepeat]; ACTIONS 451 [sym_kString]; ACTIONS 453 [sym_kTry];
   ACTIONS 455 [sym_kVar]; ACTIONS 457 [sym_kWhile]; ACTIONS 459 [sym_kWith]].

(** State 539. *)
Definition ts_parse_table_539 : parse_row :=
  [STATE 1085 [sym__procAttribute]; STATE 15235 [sym_procAttribute];
   STATE 819 [sym_procExternal]; STATE 891 [aux_sym_declProcFwd_repeat1];
   STATE 819 [aux_sym_declVar_repeat2]; ACTIONS 3410 [anon_sym_SEMI; anon_sym_COMMA];
   ACTIONS 3414 [anon_sym_LBRACK]; ACTIONS 3419 [anon_sym_LPAREN];
   ACTIONS 3410 [aux_sym__literalString_token1; anon_sym_POUND];
   ACTIONS 3419 [aux_sym__literalInt_token1]; ACTIONS 3410 [aux_sym__literalInt_token2;
   aux_sym__literalInt_token3]; ACTIONS 3419 [aux_sym__literalFloat_token1];
   ACTIONS 3410 [aux_sym_ppUsesBlock_token1; aux_sym_ppUsesBlock_token2;
   aux_sym_ppUsesBlock_token3]; ACTIONS 3419 [sym_kAdd; sym_kSub]; ACTIONS 3410 [sym_kAt;
   sym_kTrue; sym_kFalse]; ACTIONS 3 [sym__space]; ACTIONS 5 [sym_ppDirective];
   ACTIONS 3 [sym_comment]; ACTIONS 3410 [sym_ppFragmentExpr; sym__literalStringMultiline;
   sym_identifier]; ACTIONS 3423 [sym_kDefault; sym_kNodefault]; ACTIONS 3428 [sym_kDispId];
   ACTIONS 3410 [sym_kGeneric; sym_kSpecialize; sym_kOperator]; ACTIONS 3433 [sym_kPublic];
   ACTIONS 3423 [sym_kStatic; sym_kVirtual; sym_kAbstract; sym_kDynamic; sym_kOverride;
   sym_kOverload; sym_kReintroduce; sym_kStdcall; sym_kCdecl; sym_kCppdecl; sym_kPascal;
   sym_kRegister; sym_kMwpascal]; ACTIONS 3438 [sym_kExternal]; ACTIONS 3440 [sym_kMessage];
   ACTIONS 3445 [sym_kDeprecated]; ACTIONS 3423 [sym_kExperimental; sym_kPlatform;
   sym_kUnimplemented; sym_kCvar]; ACTIONS 3450 [sym_kExport]; ACTIONS 3423 [sym_kFar; sym_kNear;
   sym_kSafecall; sym_kAssembler; sym_kNostackframe; sym_kInterrupt; sym_kNoreturn; sym_kIocheck;
   sym_kLocal; sym_kHardfloat; sym_kSoftfloat; sym_kMs_abi_default; sym_kMs_abi_cdecl;
   sym_kSaveregisters; sym_kSysv_abi_default; sym_kSysv_abi_cdecl; sym_kVectorcall; sym_kVarargs;
   sym_kWinapi]; ACTIONS 3455 [sym_kAlias]; ACTIONS 3410 [sym_kAsm; sym_kBegin; sym_kCase;
   sym_kClass; sym_kConst; sym_kConstructor; sym_kDestructor; sym_kExports; sym_kFor;
   sym_kFunction; sym_kGoto; sym_kIf; sym_kInherited]; ACTIONS 1016 [sym_kInline];
   ACTIONS 3410 [sym_kLabel; sym_kNil; sym_kNot; sym_kProcedure; sym_kProperty; sym_kRaise;
   sym_kRepeat; sym_kResourcestring; sym_kString; sym_kThreadvar; sym_kTry; sym_kType; sym_kUses;
   sym_kVar; sym_kWhile; sym_kWith]].

(** State 540. *)
Definition ts_parse_table_540 : parse_row :=
  [STATE 6213 [sym_if]; STATE 6327 [sym_ifElse; sym_while; sym_repeat; sym_for; sym_foreach;
   sym_try; sym_case; sym_block; sym_asm; sym_with; sym_raise; sym_statement; sym_goto;
   sym__statement]; STATE 15414 [sym_ifTr; sym_ifElseTr; sym_whileTr; sym_repeatTr; sym_forTr;
   sym_foreachTr; sym_tryTr; sym_caseTr]; STATE 14251 [sym_blockTr]; STATE 15414 [sym_asmTr;
   sym_withTr; sym_raiseTr; sym_statementTr; sym_gotoTr; sym__statementTr];
   STATE 13915 [sym_assignment]; STATE 11785 [sym_varAssignDef]; STATE 13915 [sym_varDef;
   sym_constDef]; STATE 6166 [sym_label]; STATE 15414 [sym__statementsTr]; STATE 8019 [sym__expr;
   sym_exprConditional]; STATE 7478 [sym__ref; sym_lambda; sym_inherited; sym_exprDot;
   sym_exprDeref; sym_exprAs; sym_exprTpl; sym_exprSubscript; sym_exprCall];
   STATE 8019 [sym_exprBinary; sym_exprUnary]; STATE 7478 [sym_exprParens; sym_exprBrackets;
   sym__literal; sym_literalString]; STATE 6664 [sym__literalString; sym_literalChar];
   STATE 7478 [sym_literalNumber]; STATE 7742 [sym__literalInt; sym__literalFloat];
   STATE 1380 [sym__ppIf]; STATE 6327 [sym__ppStatementBlock];
   STATE 11840 [aux_sym_labeledStatement_repeat1]; STATE 863 [aux_sym__statementsTr_repeat1];
   STATE 6664 [aux_sym_literalString_repeat1]; ACTIONS 397 [anon_sym_SEMI];
   ACTIONS 399 [anon_sym_LBRACK]; ACTIONS 401 [anon_sym_LPAREN];
   ACTIONS 403 [aux_sym__literalString_token1]; ACTIONS 405 [anon_sym_POUND];
   ACTIONS 407 [aux_sym__literalInt_token1]; ACTIONS 409 [aux_sym__literalInt_token2;
   aux_sym__literalInt_token3]; ACTIONS 407 [aux_sym__literalFloat_token1];
   ACTIONS 411 [aux_sym_ppUsesBlock_token1]; ACTIONS 413 [sym_kAdd; sym_kSub];
   ACTIONS 415 [sym_kAt]; ACTIONS 417 [sym_kTrue; sym_kFalse]; ACTIONS 419 [sym_labelNumber];
   ACTIONS 3 [sym__space]; ACTIONS 5 [sym_ppDirective]; ACTIONS 3 [sym_comment];
   ACTIONS 417 [sym_ppFragmentExpr]; ACTIONS 397 [sym_ppFragmentStmt];
   ACTIONS 403 [sym__literalStringMultiline]; ACTIONS 421 [sym_identifier];
   ACTIONS 423 [sym_kSpecialize]; ACTIONS 427 [sym_kAsm]; ACTIONS 429 [sym_kBegin];
   ACTIONS 431 [sym_kCase]; ACTIONS 433 [sym_kConst]; ACTIONS 2249 [sym_kEnd];
   ACTIONS 437 [sym_kFor]; ACTIONS 439 [sym_kFunction]; ACTIONS 441 [sym_kGoto];
   ACTIONS 443 [sym_kIf]; ACTIONS 445 [sym_kInherited]; ACTIONS 417 [sym_kNil];
   ACTIONS 415 [sym_kNot]; ACTIONS 439 [sym_kProcedure]; ACTIONS 447 [sym_kRaise];
   ACTIONS 449 [sym_kRepeat]; ACTIONS 451 [sym_kString]; ACTIONS 453 [sym_kTry];
   ACTIONS 455 [sym_kVar]; ACTIONS 457 [sym_kWhile]; ACTIONS 459 [sym_kWith]].

(** State 541. *)
Definition ts_parse_table_541 : parse_row :=
  [STATE 6213 [sym_if]; STATE 6327 [sym_ifElse; sym_while; sym_repeat; sym_for; sym_foreach;
   sym_try; sym_case; sym_block; sym_asm; sym_with; sym_raise; sym_statement; sym_goto;
   sym__statement]; STATE 15419 [sym_ifTr; sym_ifElseTr; sym_whileTr; sym_repeatTr; sym_forTr;
   sym_foreachTr; sym_tryTr; sym_caseTr]; STATE 14251 [sym_blockTr]; STATE 15419 [sym_asmTr;
   sym_withTr; sym_raiseTr; sym_statementTr; sym_gotoTr; sym__statementTr];
   STATE 13915 [sym_assignment]; STATE 11785 [sym_varAssignDef]; STATE 13915 [sym_varDef;
   sym_constDef]; STATE 6166 [sym_label]; STATE 15419 [sym__statementsTr]; STATE 8019 [sym__expr;
   sym_exprConditional]; STATE 7478 [sym__ref; sym_lambda; sym_inherited; sym_exprDot;
   sym_exprDeref; sym_exprAs; sym_exprTpl; sym_exprSubscript; sym_exprCall];
   STATE 8019 [sym_exprBinary; sym_exprUnary]; STATE 7478 [sym_exprParens; sym_exprBrackets;
   sym__literal; sym_literalString]; STATE 6664 [sym__literalString; sym_literalChar];
   STATE 7478 [sym_literalNumber]; STATE 7742 [sym__literalInt; sym__literalFloat];
   STATE 1380 [sym__ppIf]; STATE 6327 [sym__ppStatementBlock];
   STATE 11840 [aux_sym_labeledStatement_repeat1]; STATE 863 [aux_sym__statementsTr_repeat1];
   STATE 6664 [aux_sym_literalString_repeat1]; ACTIONS 397 [anon_sym_SEMI];
   ACTIONS 399 [anon_sym_LBRACK]; ACTIONS 401 [anon_sym_LPAREN];
   ACTIONS 403 [aux_sym__literalString_token1]; ACTIONS 405 [anon_sym_POUND];
   ACTIONS 407 [aux_sym__literalInt_token1]; ACTIONS 409 [aux_sym__literalInt_token2;
   aux_sym__literalInt_token3]; ACTIONS 407 [aux_sym__literalFloat_token1];
   ACTIONS 411 [aux_sym_ppUsesBlock_token1]; ACTIONS 413 [sym_kAdd; sym_kSub];
   ACTIONS 415 [sym_kAt]; ACTIONS 417 [sym_kTrue; sym_kFalse]; ACTIONS 419 [sym_labelNumber];
   ACTIONS 3 [sym__space]; ACTIONS 5 [sym_ppDirective]; ACTIONS 3 [sym_comment];
   ACTIONS 417 [sym_ppFragmentExpr]; ACTIONS 397 [sym_ppFragmentStmt];
   ACTIONS 403 [sym__literalStringMultiline]; ACTIONS 421 [sym_identifier];
   ACTIONS 423 [sym_kSpecialize]; ACTIONS 427 [sym_kAsm]; ACTIONS 429 [sym_kBegin];
   ACTIONS 431 [sym_kCase]; ACTIONS 433 [sym_kConst]; ACTIONS 2253 [sym_kEnd];
   ACTIONS 437 [sym_kFor]; ACTIONS 439 [sym_kFunction]; ACTIONS 441 [sym_kGoto];
   ACTIONS 443 [sym_kIf]; ACTIONS 445 [sym_kInherited]; ACTIONS 417 [sym_kNil];
   ACTIONS 415 [sym_kNot]; ACTIONS 439 [sym_kProcedure]; ACTIONS 447 [sym_kRaise];
   ACTIONS 449 [sym_kRepeat]; ACTIONS 451 [sym_kString]; ACTIONS 453 [sym_kTry];
   ACTIONS 455 [sym_kVar]; ACTIONS 457 [sym_kWhile]; ACTIONS 459 [sym_kWith]].

(** State 542. *)
Definition ts_parse_table_542 : parse_row :=
  [STATE 6213 [sym_if]; STATE 6327 [sym_ifElse; sym_while; sym_repeat; sym_for; sym_foreach;
   sym_try; sym_case; sym_block; sym_asm; sym_with; sym_raise; sym_statement; sym_goto;
   sym__statement]; STATE 14936 [sym_ifTr; sym_ifElseTr; sym_whileTr; sym_repeatTr; sym_forTr;
   sym_foreachTr; sym_tryTr; sym_caseTr]; STATE 14251 [sym_blockTr]; STATE 14936 [sym_asmTr;
   sym_withTr; sym_raiseTr; sym_statementTr; sym_gotoTr; sym__statementTr];
   STATE 13915 [sym_assignment]; STATE 11785 [sym_varAssignDef]; STATE 13915 [sym_varDef;
   sym_constDef]; STATE 6166 [sym_label]; STATE 14936 [sym__statementsTr]; STATE 8019 [sym__expr;
   sym_exprConditional]; STATE 7478 [sym__ref; sym_lambda; sym_inherited; sym_exprDot;
   sym_exprDeref; sym_exprAs; sym_exprTpl; sym_exprSubscript; sym_exprCall];
   STATE 8019 [sym_exprBinary; sym_exprUnary]; STATE 7478 [sym_exprParens; sym_exprBrackets;
   sym__literal; sym_literalString]; STATE 6664 [sym__literalString; sym_literalChar];
   STATE 7478 [sym_literalNumber]; STATE 7742 [sym__literalInt; sym__literalFloat];
   STATE 1380 [sym__ppIf]; STATE 6327 [sym__ppStatementBlock];
   STATE 11840 [aux_sym_labeledStatement_repeat1]; STATE 863 [aux_sym__statementsTr_repeat1];
   STATE 6664 [aux_sym_literalString_repeat1]; ACTIONS 397 [anon_sym_SEMI];
   ACTIONS 399 [anon_sym_LBRACK]; ACTIONS 401 [anon_sym_LPAREN];
   ACTIONS 403 [aux_sym__literalString_token1]; ACTIONS 405 [anon_sym_POUND];
   ACTIONS 407 [aux_sym__literalInt_token1]; ACTIONS 409 [aux_sym__literalInt_token2;
   aux_sym__literalInt_token3]; ACTIONS 407 [aux_sym__literalFloat_token1];
   ACTIONS 411 [aux_sym_ppUsesBlock_token1]; ACTIONS 413 [sym_kAdd; sym_kSub];
   ACTIONS 415 [sym_kAt]; ACTIONS 417 [sym_kTrue; sym_kFalse]; ACTIONS 419 [sym_labelNumber];
   ACTIONS 3 [sym__space]; ACTIONS 5 [sym_ppDirective]; ACTIONS 3 [sym_comment];
   ACTIONS 417 [sym_ppFragmentExpr]; ACTIONS 397 [sym_ppFragmentStmt];
   ACTIONS 403 [sym__literalStringMultiline]; ACTIONS 421 [sym_identifier];
   ACTIONS 423 [sym_kSpecialize]; ACTIONS 427 [sym_kAsm]; ACTIONS 429 [sym_kBegin];
   ACTIONS 431 [sym_kCase]; ACTIONS 433 [sym_kConst]; ACTIONS 1256 [sym_kEnd];
   ACTIONS 437 [sym_kFor]; ACTIONS 439 [sym_kFunction]; ACTIONS 441 [sym_kGoto];
   ACTIONS 443 [sym_kIf]; ACTIONS 445 [sym_kInherited]; ACTIONS 417 [sym_kNil];
   ACTIONS 415 [sym_kNot]; ACTIONS 439 [sym_kProcedure]; ACTIONS 447 [sym_kRaise];
   ACTIONS 449 [sym_kRepeat]; ACTIONS 451 [sym_kString]; ACTIONS 453 [sym_kTry];
   ACTIONS 455 [sym_kVar]; ACTIONS 457 [sym_kWhile]; ACTIONS 459 [sym_kWith]].

(** State 543. *)
Definition ts_parse_table_543 : parse_row :=
  [STATE 6213 [sym_if]; STATE 6327 [sym_ifElse; sym_while; sym_repeat; sym_for; sym_foreach;
   sym_try; sym_case; sym_block; sym_asm; sym_with; sym_raise; sym_statement; sym_goto;
   sym__statement]; STATE 15425 [sym_ifTr; sym_ifElseTr; sym_whileTr; sym_repeatTr; sym_forTr;
   sym_foreachTr; sym_tryTr; sym_caseTr]; STATE 14251 [sym_blockTr]; STATE 15425 [sym_asmTr;
   sym_withTr; sym_raiseTr; sym_statementTr; sym_gotoTr; sym__statementTr];
   STATE 13915 [sym_assignment]; STATE 11785 [sym_varAssignDef]; STATE 13915 [sym_varDef;
   sym_constDef]; STATE 6166 [sym_label]; STATE 15425 [sym__statementsTr]; STATE 8019 [sym__expr;
   sym_exprConditional]; STATE 7478 [sym__ref; sym_lambda; sym_inherited; sym_exprDot;
   sym_exprDeref; sym_exprAs; sym_exprTpl; sym_exprSubscript; sym_exprCall];
   STATE 8019 [sym_exprBinary; sym_exprUnary]; STATE 7478 [sym_exprParens; sym_exprBrackets;
   sym__literal; sym_literalString]; STATE 6664 [sym__literalString; sym_literalChar];
   STATE 7478 [sym_literalNumber]; STATE 7742 [sym__literalInt; sym__literalFloat];
   STATE 1380 [sym__ppIf]; STATE 6327 [sym__ppStatementBlock];
   STATE 11840 [aux_sym_labeledStatement_repeat1]; STATE 863 [aux_sym__statementsTr_repeat1];
   STATE 6664 [aux_sym_literalString_repeat1]; ACTIONS 397 [anon_sym_SEMI];
   ACTIONS 399 [anon_sym_LBRACK]; ACTIONS 401 [anon_sym_LPAREN];
   ACTIONS 403 [aux_sym__literalString_token1]; ACTIONS 405 [anon_sym_POUND];
   ACTIONS 407 [aux_sym__literalInt_token1]; ACTIONS 409 [aux_sym__literalInt_token2;
   aux_sym__literalInt_token3]; ACTIONS 407 [aux_sym__literalFloat_token1];
   ACTIONS 411 [aux_sym_ppUsesBlock_token1]; ACTIONS 413 [sym_kAdd; sym_kSub];
   ACTIONS 415 [sym_kAt]; ACTIONS 417 [sym_kTrue; sym_kFalse]; ACTIONS 419 [sym_labelNumber];
   ACTIONS 3 [sym__space]; ACTIONS 5 [sym_ppDirective]; ACTIONS 3 [sym_comment];
   ACTIONS 417 [sym_ppFragmentExpr]; ACTIONS 397 [sym_ppFragmentStmt];
   ACTIONS 403 [sym__literalStringMultiline]; ACTIONS 421 [sym_identifier];
   ACTIONS 423 [sym_kSpecialize]; ACTIONS 427 [sym_kAsm]; ACTIONS 429 [sym_kBegin];
   ACTIONS 431 [sym_kCase]; ACTIONS 433 [sym_kConst]; ACTIONS 3460 [sym_kEnd];
   ACTIONS 437 [sym_kFor]; ACTIONS 439 [sym_kFunction]; ACTIONS 441 [sym_kGoto];
   ACTIONS 443 [sym_kIf]; ACTIONS 445 [sym_kInherited]; ACTIONS 417 [sym_kNil];
   ACTIONS 415 [sym_kNot]; ACTIONS 439 [sym_kProcedure]; ACTIONS 447 [sym_kRaise];
   ACTIONS 449 [sym_kRepeat]; ACTIONS 451 [sym_kString]; ACTIONS 453 [sym_kTry];
   ACTIONS 455 [sym_kVar]; ACTIONS 457 [sym_kWhile]; ACTIONS 459 [sym_kWith]].

(** State 544. *)
Definition ts_parse_table_544 : parse_row :=
  [STATE 6213 [sym_if]; STATE 6327 [sym_ifElse; sym_while; sym_repeat; sym_for; sym_foreach;
   sym_try; sym_case; sym_block; sym_asm; sym_with; sym_raise; sym_statement; sym_goto;
   sym__statement]; STATE 15443 [sym_ifTr; sym_ifElseTr; sym_whileTr; sym_repeatTr; sym_forTr;
   sym_foreachTr; sym_tryTr; sym_caseTr]; STATE 14251 [sym_blockTr]; STATE 15443 [sym_asmTr;
   sym_withTr; sym_raiseTr; sym_statementTr; sym_gotoTr; sym__statementTr];
   STATE 13915 [sym_assignment]; STATE 11785 [sym_varAssignDef]; STATE 13915 [sym_varDef;
   sym_constDef]; STATE 6166 [sym_label]; STATE 15443 [sym__statementsTr]; STATE 8019 [sym__expr;
   sym_exprConditional]; STATE 7478 [sym__ref; sym_lambda; sym_inherited; sym_exprDot;
   sym_exprDeref; sym_exprAs; sym_exprTpl; sym_exprSubscript; sym_exprCall];
   STATE 8019 [sym_exprBinary; sym_exprUnary]; STATE 7478 [sym_exprParens; sym_exprBrackets;
   sym__literal; sym_literalString]; STATE 6664 [sym__literalString; sym_literalChar];
   STATE 7478 [sym_literalNumber]; STATE 7742 [sym__literalInt; sym__literalFloat];
   STATE 1380 [sym__ppIf]; STATE 6327 [sym__ppStatementBlock];
   STATE 11840 [aux_sym_labeledStatement_repeat1]; STATE 863 [aux_sym__statementsTr_repeat1];
   STATE 6664 [aux_sym_literalString_repeat1]; ACTIONS 397 [anon_sym_SEMI];
   ACTIONS 399 [anon_sym_LBRACK]; ACTIONS 401 [anon_sym_LPAREN];
   ACTIONS 403 [aux_sym__literalString_token1]; ACTIONS 405 [anon_sym_POUND];
   ACTIONS 407 [aux_sym__literalInt_token1]; ACTIONS 409 [aux_sym__literalInt_token2;
   aux_sym__literalInt_token3]; ACTIONS 407 [aux_sym__literalFloat_token1];
   ACTIONS 411 [aux_sym_ppUsesBlock_token1]; ACTIONS 413 [sym_kAdd; sym_kSub];
   ACTIONS 415 [sym_kAt]; ACTIONS 417 [sym_kTrue; sym_kFalse]; ACTIONS 419 [sym_labelNumber];
   ACTIONS 3 [sym__space]; ACTIONS 5 [sym_ppDirective]; ACTIONS 3 [sym_comment];
   ACTIONS 417 [sym_ppFragmentExpr]; ACTIONS 397 [sym_ppFragmentStmt];
   ACTIONS 403 [sym__literalStringMultiline]; ACTIONS 421 [sym_identifier];
   ACTIONS 423 [sym_kSpecialize]; ACTIONS 427 [sym_kAsm]; ACTIONS 429 [sym_kBegin];
   ACTIONS 431 [sym_kCase]; ACTIONS 433 [sym_kConst]; ACTIONS 3462 [sym_kEnd];
   ACTIONS 437 [sym_kFor]; ACTIONS 439 [sym_kFunction]; ACTIONS 441 [sym_kGoto];
   ACTIONS 443 [sym_kIf]; ACTIONS 445 [sym_kInherited]; ACTIONS 417 [sym_kNil];
   ACTIONS 415 [sym_kNot]; ACTIONS 439 [sym_kProcedure]; ACTIONS 447 [sym_kRaise];
   ACTIONS 449 [sym_kRepeat]; ACTIONS 451 [sym_kString]; ACTIONS 453 [sym_kTry];
   ACTIONS 455 [sym_kVar]; ACTIONS 457 [sym_kWhile]; ACTIONS 459 [sym_kWith]].

(** State 545. *)
Definition ts_parse_table_545 : parse_row :=
  [STATE 6213 [sym_if]; STATE 6327 [sym_ifElse; sym_while; sym_repeat; sym_for; sym_foreach;
   sym_try; sym_case; sym_block; sym_asm; sym_with; sym_raise; sym_statement; sym_goto;
   sym__statement]; STATE 15449 [sym_ifTr; sym_ifElseTr; sym_whileTr; sym_repeatTr; sym_forTr;
   sym_foreachTr; sym_tryTr; sym_caseTr]; STATE 14251 [sym_blockTr]; STATE 15449 [sym_asmTr;
   sym_withTr; sym_raiseTr; sym_statementTr; sym_gotoTr; sym__statementTr];
   STATE 13915 [sym_assignment]; STATE 11785 [sym_varAssignDef]; STATE 13915 [sym_varDef;
   sym_constDef]; STATE 6166 [sym_label]; STATE 15449 [sym__statementsTr]; STATE 8019 [sym__expr;
   sym_exprConditional]; STATE 7478 [sym__ref; sym_lambda; sym_inherited; sym_exprDot;
   sym_exprDeref; sym_exprAs; sym_exprTpl; sym_exprSubscript; sym_exprCall];
   STATE 8019 [sym_exprBinary; sym_exprUnary]; STATE 7478 [sym_exprParens; sym_exprBrackets;
   sym__literal; sym_literalString]; STATE 6664 [sym__literalString; sym_literalChar];
   STATE 7478 [sym_literalNumber]; STATE 7742 [sym__literalInt; sym__literalFloat];
   STATE 1380 [sym__ppIf]; STATE 6327 [sym__ppStatementBlock];
   STATE 11840 [aux_sym_labeledStatement_repeat1]; STATE 863 [aux_sym__statementsTr_repeat1];
   STATE 6664 [aux_sym_literalString_repeat1]; ACTIONS 397 [anon_sym_SEMI];
   ACTIONS 399 [anon_sym_LBRACK]; ACTIONS 401 [anon_sym_LPAREN];
   ACTIONS 403 [aux_sym__literalString_token1]; ACTIONS 405 [anon_sym_POUND];
   ACTIONS 407 [aux_sym__literalInt_token1]; ACTIONS 409 [aux_sym__literalInt_token2;
   aux_sym__literalInt_token3]; ACTIONS 407 [aux_sym__literalFloat_token1];
   ACTIONS 411 [aux_sym_ppUsesBlock_token1]; ACTIONS 413 [sym_kAdd; sym_kSub];
   ACTIONS 415 [sym_kAt]; ACTIONS 417 [sym_kTrue; sym_kFalse]; ACTIONS 419 [sym_labelNumber];
   ACTIONS 3 [sym__space]; ACTIONS 5 [sym_ppDirective]; ACTIONS 3 [sym_comment];
   ACTIONS 417 [sym_ppFragmentExpr]; ACTIONS 397 [sym_ppFragmentStmt];
   ACTIONS 403 [sym__literalStringMultiline]; ACTIONS 421 [sym_identifier];
   ACTIONS 423 [sym_kSpecialize]; ACTIONS 427 [sym_kAsm]; ACTIONS 429 [sym_kBegin];
   ACTIONS 431 [sym_kCase]; ACTIONS 433 [sym_kConst]; ACTIONS 3464 [sym_kEnd];
   ACTIONS 437 [sym_kFor]; ACTIONS 439 [sym_kFunction]; ACTIONS 441 [sym_kGoto];
   ACTIONS 443 [sym_kIf]; ACTIONS 445 [sym_kInherited]; ACTIONS 417 [sym_kNil];
   ACTIONS 415 [sym_kNot]; ACTIONS 439 [sym_kProcedure]; ACTIONS 447 [sym_kRaise];
   ACTIONS 449 [sym_kRepeat]; ACTIONS 451 [sym_kString]; ACTIONS 453 [sym_kTry];
   ACTIONS 455 [sym_kVar]; ACTIONS 457 [sym_kWhile]; ACTIONS 459 [sym_kWith]].

(** State 546. *)
Definition ts_parse_table_546 : parse_row :=
  [STATE 6213 [sym_if]; STATE 6327 [sym_ifElse; sym_while; sym_repeat; sym_for; sym_foreach;
   sym_try; sym_case; sym_block; sym_asm; sym_with; sym_raise; sym_statement; sym_goto;
   sym__statement]; STATE 14716 [sym_ifTr; sym_ifElseTr; sym_whileTr; sym_repeatTr; sym_forTr;
   sym_foreachTr; sym_tryTr; sym_caseTr]; STATE 14251 [sym_blockTr]; STATE 14716 [sym_asmTr;
   sym_withTr; sym_raiseTr; sym_statementTr; sym_gotoTr; sym__statementTr];
   STATE 13915 [sym_assignment]; STATE 11785 [sym_varAssignDef]; STATE 13915 [sym_varDef;
   sym_constDef]; STATE 6166 [sym_label]; STATE 14716 [sym__statementsTr]; STATE 8019 [sym__expr;
   sym_exprConditional]; STATE 7478 [sym__ref; sym_lambda; sym_inherited; sym_exprDot;
   sym_exprDeref; sym_exprAs; sym_exprTpl; sym_exprSubscript; sym_exprCall];
   STATE 8019 [sym_exprBinary; sym_exprUnary]; STATE 7478 [sym_exprParens; sym_exprBrackets;
   sym__literal; sym_literalString]; STATE 6664 [sym__literalString; sym_literalChar];
   STATE 7478 [sym_literalNumber]; STATE 7742 [sym__literalInt; sym__literalFloat];
   STATE 1380 [sym__ppIf]; STATE 6327 [sym__ppStatementBlock];
   STATE 11840 [aux_sym_labeledStatement_repeat1]; STATE 863 [aux_sym__statementsTr_repeat1];
   STATE 6664 [aux_sym_literalString_repeat1]; ACTIONS 397 [anon_sym_SEMI];
   ACTIONS 399 [anon_sym_LBRACK]; ACTIONS 401 [anon_sym_LPAREN];
   ACTIONS 403 [aux_sym__literalString_token1]; ACTIONS 405 [anon_sym_POUND];
   ACTIONS 407 [aux_sym__literalInt_token1]; ACTIONS 409 [aux_sym__literalInt_token2;
   aux_sym__literalInt_token3]; ACTIONS 407 [aux_sym__literalFloat_token1];
   ACTIONS 411 [aux_sym_ppUsesBlock_token1]; ACTIONS 413 [sym_kAdd; sym_kSub];
   ACTIONS 415 [sym_kAt]; ACTIONS 417 [sym_kTrue; sym_kFalse]; ACTIONS 419 [sym_labelNumber];
   ACTIONS 3 [sym__space]; ACTIONS 5 [sym_ppDirective]; ACTIONS 3 [sym_comment];
   ACTIONS 417 [sym_ppFragmentExpr]; ACTIONS 397 [sym_ppFragmentStmt];
   ACTIONS 403 [sym__literalStringMultiline]; ACTIONS 421 [sym_identifier];
   ACTIONS 423 [sym_kSpecialize]; ACTIONS 427 [sym_kAsm]; ACTIONS 429 [sym_kBegin];
   ACTIONS 431 [sym_kCase]; ACTIONS 433 [sym_kConst]; ACTIONS 1248 [sym_kEnd];
   ACTIONS 437 [sym_kFor]; ACTIONS 439 [sym_kFunction]; ACTIONS 441 [sym_kGoto];
   ACTIONS 443 [sym_kIf]; ACTIONS 445 [sym_kInherited]; ACTIONS 417 [sym_kNil];
   ACTIONS 415 [sym_kNot]; ACTIONS 439 [sym_kProcedure]; ACTIONS 447 [sym_kRaise];
   ACTIONS 449 [sym_kRepeat]; ACTIONS 451 [sym_kString]; ACTIONS 453 [sym_kTry];
   ACTIONS 455 [sym_kVar]; ACTIONS 457 [sym_kWhile]; ACTIONS 459 [sym_kWith]].

(** State 547. *)
Definition ts_parse_table_547 : parse_row :=
  [STATE 6213 [sym_if]; STATE 6327 [sym_ifElse; sym_while; sym_repeat; sym_for; sym_foreach;
   sym_try; sym_case; sym_block; sym_asm; sym_with; sym_raise; sym_statement; sym_goto;
   sym__statement]; STATE 15554 [sym_ifTr; sym_ifElseTr; sym_whileTr; sym_repeatTr; sym_forTr;
   sym_foreachTr; sym_tryTr; sym_caseTr]; STATE 14251 [sym_blockTr]; STATE 15554 [sym_asmTr;
   sym_withTr; sym_raiseTr; sym_statementTr; sym_gotoTr; sym__statementTr];
   STATE 13915 [sym_assignment]; STATE 11785 [sym_varAssignDef]; STATE 13915 [sym_varDef;
   sym_constDef]; STATE 6166 [sym_label]; STATE 15554 [sym__statementsTr]; STATE 8019 [sym__expr;
   sym_exprConditional]; STATE 7478 [sym__ref; sym_lambda; sym_inherited; sym_exprDot;
   sym_exprDeref; sym_exprAs; sym_exprTpl; sym_exprSubscript; sym_exprCall];
   STATE 8019 [sym_exprBinary; sym_exprUnary]; STATE 7478 [sym_exprParens; sym_exprBrackets;
   sym__literal; sym_literalString]; STATE 6664 [sym__literalString; sym_literalChar];
   STATE 7478 [sym_literalNumber]; STATE 7742 [sym__literalInt; sym__literalFloat];
   STATE 1380 [sym__ppIf]; STATE 6327 [sym__ppStatementBlock];
   STATE 11840 [aux_sym_labeledStatement_repeat1]; STATE 863 [aux_sym__statementsTr_repeat1];
   STATE 6664 [aux_sym_literalString_repeat1]; ACTIONS 397 [anon_sym_SEMI];
   ACTIONS 399 [anon_sym_LBRACK]; ACTIONS 401 [anon_sym_LPAREN];
   ACTIONS 403 [aux_sym__literalString_token1]; ACTIONS 405 [anon_sym_POUND];
   ACTIONS 407 [aux_sym__literalInt_token1]; ACTIONS 409 [aux_sym__literalInt_token2;
   aux_sym__literalInt_token3]; ACTIONS 407 [aux_sym__literalFloat_token1];
   ACTIONS 411 [aux_sym_ppUsesBlock_token1]; ACTIONS 413 [sym_kAdd; sym_kSub];
   ACTIONS 415 [sym_kAt]; ACTIONS 417 [sym_kTrue; sym_kFalse]; ACTIONS 419 [sym_labelNumber];
   ACTIONS 3 [sym__space]; ACTIONS 5 [sym_ppDirective]; ACTIONS 3 [sym_comment];
   ACTIONS 417 [sym_ppFragmentExpr]; ACTIONS 397 [sym_ppFragmentStmt];
   ACTIONS 403 [sym__literalStringMultiline]; ACTIONS 421 [sym_identifier];
   ACTIONS 423 [sym_kSpecialize]; ACTIONS 427 [sym_kAsm]; ACTIONS 429 [sym_kBegin];
   ACTIONS 431 [sym_kCase]; ACTIONS 433 [sym_kConst]; ACTIONS 2265 [sym_kEnd];
   ACTIONS 437 [sym_kFor]; ACTIONS 439 [sym_kFunction]; ACTIONS 441 [sym_kGoto];
   ACTIONS 443 [sym_kIf]; ACTIONS 445 [sym_kInherited]; ACTIONS 417 [sym_kNil];
   ACTIONS 415 [sym_kNot]; ACTIONS 439 [sym_kProcedure]; ACTIONS 447 [sym_kRaise];
   ACTIONS 449 [sym_kRepeat]; ACTIONS 451 [sym_kString]; ACTIONS 453 [sym_kTry];
   ACTIONS 455 [sym_kVar]; ACTIONS 457 [sym_kWhile]; ACTIONS 459 [sym_kWith]].

(** State 548. *)
Definition ts_parse_table_548 : parse_row :=
  [STATE 6213 [sym_if]; STATE 6327 [sym_ifElse; sym_while; sym_repeat; sym_for; sym_foreach;
   sym_try; sym_case; sym_block; sym_asm; sym_with; sym_raise; sym_statement; sym_goto;
   sym__statement]; STATE 15558 [sym_ifTr; sym_ifElseTr; sym_whileTr; sym_repeatTr; sym_forTr;
   sym_foreachTr; sym_tryTr; sym_caseTr]; STATE 14251 [sym_blockTr]; STATE 15558 [sym_asmTr;
   sym_withTr; sym_raiseTr; sym_statementTr; sym_gotoTr; sym__statementTr];
   STATE 13915 [sym_assignment]; STATE 11785 [sym_varAssignDef]; STATE 13915 [sym_varDef;
   sym_constDef]; STATE 6166 [sym_label]; STATE 15558 [sym__statementsTr]; STATE 8019 [sym__expr;
   sym_exprConditional]; STATE 7478 [sym__ref; sym_lambda; sym_inherited; sym_exprDot;
   sym_exprDeref; sym_exprAs; sym_exprTpl; sym_exprSubscript; sym_exprCall];
   STATE 8019 [sym_exprBinary; sym_exprUnary]; STATE 7478 [sym_exprParens; sym_exprBrackets;
   sym__literal; sym_literalString]; STATE 6664 [sym__literalString; sym_literalChar];
   STATE 7478 [sym_literalNumber]; STATE 7742 [sym__literalInt; sym__literalFloat];
   STATE 1380 [sym__ppIf]; STATE 6327 [sym__ppStatementBlock];
   STATE 11840 [aux_sym_labeledStatement_repeat1]; STATE 863 [aux_sym__statementsTr_repeat1];
   STATE 6664 [aux_sym_literalString_repeat1]; ACTIONS 397 [anon_sym_SEMI];
   ACTIONS 399 [anon_sym_LBRACK]; ACTIONS 401 [anon_sym_LPAREN];
   ACTIONS 403 [aux_sym__literalString_token1]; ACTIONS 405 [anon_sym_POUND];
   ACTIONS 407 [aux_sym__literalInt_token1]; ACTIONS 409 [aux_sym__literalInt_token2;
   aux_sym__literalInt_token3]; ACTIONS 407 [aux_sym__literalFloat_token1];
   ACTIONS 411 [aux_sym_ppUsesBlock_token1]; ACTIONS 413 [sym_kAdd; sym_kSub];
   ACTIONS 415 [sym_kAt]; ACTIONS 417 [sym_kTrue; sym_kFalse]; ACTIONS 419 [sym_labelNumber];
   ACTIONS 3 [sym__space]; ACTIONS 5 [sym_ppDirective]; ACTIONS 3 [sym_comment];
   ACTIONS 417 [sym_ppFragmentExpr]; ACTIONS 397 [sym_ppFragmentStmt];
   ACTIONS 403 [sym__literalStringMultiline]; ACTIONS 421 [sym_identifier];
   ACTIONS 423 [sym_kSpecialize]; ACTIONS 427 [sym_kAsm]; ACTIONS 429 [sym_kBegin];
   ACTIONS 431 [sym_kCase]; ACTIONS 433 [sym_kConst]; ACTIONS 2269 [sym_kEnd];
   ACTIONS 437 [sym_kFor]; ACTIONS 439 [sym_kFunction]; ACTIONS 441 [sym_kGoto];
   ACTIONS 443 [sym_kIf]; ACTIONS 445 [sym_kInherited]; ACTIONS 417 [sym_kNil];
   ACTIONS 415 [sym_kNot]; ACTIONS 439 [sym_kProcedure]; ACTIONS 447 [sym_kRaise];
   ACTIONS 449 [sym_kRepeat]; ACTIONS 451 [sym_kString]; ACTIONS 453 [sym_kTry];
   ACTIONS 455 [sym_kVar]; ACTIONS 457 [sym_kWhile]; ACTIONS 459 [sym_kWith]].

(** State 549. *)
Definition ts_parse_table_549 : parse_row :=
  [STATE 6213 [sym_if]; STATE 6327 [sym_ifElse; sym_while; sym_repeat; sym_for; sym_foreach;
   sym_try; sym_case; sym_block; sym_asm; sym_with; sym_raise; sym_statement; sym_goto;
   sym__statement]; STATE 14785 [sym_ifTr; sym_ifElseTr; sym_whileTr; sym_repeatTr; sym_forTr;
   sym_foreachTr; sym_tryTr; sym_caseTr]; STATE 14251 [sym_blockTr]; STATE 14785 [sym_asmTr;
   sym_withTr; sym_raiseTr; sym_statementTr; sym_gotoTr; sym__statementTr];
   STATE 13915 [sym_assignment]; STATE 11785 [sym_varAssignDef]; STATE 13915 [sym_varDef;
   sym_constDef]; STATE 6166 [sym_label]; STATE 14785 [sym__statementsTr]; STATE 8019 [sym__expr;
   sym_exprConditional]; STATE 7478 [sym__ref; sym_lambda; sym_inherited; sym_exprDot;
   sym_exprDeref; sym_exprAs; sym_exprTpl; sym_exprSubscript; sym_exprCall];
   STATE 8019 [sym_exprBinary; sym_exprUnary]; STATE 7478 [sym_exprParens; sym_exprBrackets;
   sym__literal; sym_literalString]; STATE 6664 [sym__literalString; sym_literalChar];
   STATE 7478 [sym_literalNumber]; STATE 7742 [sym__literalInt; sym__literalFloat];
   STATE 1380 [sym__ppIf]; STATE 6327 [sym__ppStatementBlock];
   STATE 11840 [aux_sym_labeledStatement_repeat1]; STATE 863 [aux_sym__statementsTr_repeat1];
   STATE 6664 [aux_sym_literalString_repeat1]; ACTIONS 397 [anon_sym_SEMI];
   ACTIONS 399 [anon_sym_LBRACK]; ACTIONS 401 [anon_sym_LPAREN];
   ACTIONS 403 [aux_sym__literalString_token1]; ACTIONS 405 [anon_sym_POUND];
   ACTIONS 407 [aux_sym__literalInt_token1]; ACTIONS 409 [aux_sym__literalInt_token2;
   aux_sym__literalInt_token3]; ACTIONS 407 [aux_sym__literalFloat_token1];
   ACTIONS 411 [aux_sym_ppUsesBlock_token1]; ACTIONS 413 [sym_kAdd; sym_kSub];
   ACTIONS 415 [sym_kAt]; ACTIONS 417 [sym_kTrue; sym_kFalse]; ACTIONS 419 [sym_labelNumber];
   ACTIONS 3 [sym__space]; ACTIONS 5 [sym_ppDirective]; ACTIONS 3 [sym_comment];
   ACTIONS 417 [sym_ppFragmentExpr]; ACTIONS 397 [sym_ppFragmentStmt];
   ACTIONS 403 [sym__literalStringMultiline]; ACTIONS 421 [sym_identifier];
   ACTIONS 423 [sym_kSpecialize]; ACTIONS 427 [sym_kAsm]; ACTIONS 429 [sym_kBegin];
   ACTIONS 431 [sym_kCase]; ACTIONS 433 [sym_kConst]; ACTIONS 1252 [sym_kEnd];
   ACTIONS 437 [sym_kFor]; ACTIONS 439 [sym_kFunction]; ACTIONS 441 [sym_kGoto];
   ACTIONS 443 [sym_kIf]; ACTIONS 445 [sym_kInherited]; ACTIONS 417 [sym_kNil];
   ACTIONS 415 [sym_kNot]; ACTIONS 439 [sym_kProcedure]; ACTIONS 447 [sym_kRaise];
   ACTIONS 449 [sym_kRepeat]; ACTIONS 451 [sym_kString]; ACTIONS 453 [sym_kTry];
   ACTIONS 455 [sym_kVar]; ACTIONS 457 [sym_kWhile]; ACTIONS 459 [sym_kWith]].

(** State 550. *)
Definition ts_parse_table_550 : parse_row :=
  [STATE 6213 [sym_if]; STATE 6327 [sym_ifElse; sym_while; sym_repeat; sym_for; sym_foreach;
   sym_try; sym_case; sym_block; sym_asm; sym_with; sym_raise; sym_statement; sym_goto;
   sym__statement]; STATE 15560 [sym_ifTr; sym_ifElseTr; sym_whileTr; sym_repeatTr; sym_forTr;
   sym_foreachTr; sym_tryTr; sym_caseTr]; STATE 14251 [sym_blockTr]; STATE 15560 [sym_asmTr;
   sym_withTr; sym_raiseTr; sym_statementTr; sym_gotoTr; sym__statementTr];
   STATE 13915 [sym_assignment]; STATE 11785 [sym_varAssignDef]; STATE 13915 [sym_varDef;
   sym_constDef]; STATE 6166 [sym_label]; STATE 15560 [sym__statementsTr]; STATE 8019 [sym__expr;
   sym_exprConditional]; STATE 7478 [sym__ref; sym_lambda; sym_inherited; sym_exprDot;
   sym_exprDeref; sym_exprAs; sym_exprTpl; sym_exprSubscript; sym_exprCall];
   STATE 8019 [sym_exprBinary; sym_exprUnary]; STATE 7478 [sym_exprParens; sym_exprBrackets;
   sym__literal; sym_literalString]; STATE 6664 [sym__literalString; sym_literalChar];
   STATE 7478 [sym_literalNumber]; STATE 7742 [sym__literalInt; sym__literalFloat];
   STATE 1380 [sym__ppIf]; STATE 6327 [sym__ppStatementBlock];
   STATE 11840 [aux_sym_labeledStatement_repeat1]; STATE 863 [aux_sym__statementsTr_repeat1];
   STATE 6664 [aux_sym_literalString_repeat1]; ACTIONS 397 [anon_sym_SEMI];
   ACTIONS 399 [anon_sym_LBRACK]; ACTIONS 401 [anon_sym_LPAREN];
   ACTIONS 403 [aux_sym__literalString_token1]; ACTIONS 405 [anon_sym_POUND];
   ACTIONS 407 [aux_sym__literalInt_token1]; ACTIONS 409 [aux_sym__literalInt_token2;
   aux_sym__literalInt_token3]; ACTIONS 407 [aux_sym__literalFloat_token1];
   ACTIONS 411 [aux_sym_ppUsesBlock_token1]; ACTIONS 413 [sym_kAdd; sym_kSub];
   ACTIONS 415 [sym_kAt]; ACTIONS 417 [sym_kTrue; sym_kFalse]; ACTIONS 419 [sym_labelNumber];
   ACTIONS 3 [sym__space]; ACTIONS 5 [sym_ppDirective]; ACTIONS 3 [sym_comment];
   ACTIONS 417 [sym_ppFragmentExpr]; ACTIONS 397 [sym_ppFragmentStmt];
   ACTIONS 403 [sym__literalStringMultiline]; ACTIONS 421 [sym_identifier];
   ACTIONS 423 [sym_kSpecialize]; ACTIONS 427 [sym_kAsm]; ACTIONS 429 [sym_kBegin];
   ACTIONS 431 [sym_kCase]; ACTIONS 433 [sym_kConst]; ACTIONS 3466 [sym_kEnd];
   ACTIONS 437 [sym_kFor]; ACTIONS 439 [sym_kFunction]; ACTIONS 441 [sym_kGoto];
   ACTIONS 443 [sym_kIf]; ACTIONS 445 [sym_kInherited]; ACTIONS 417 [sym_kNil];
   ACTIONS 415 [sym_kNot]; ACTIONS 439 [sym_kProcedure]; ACTIONS 447 [sym_kRaise];
   ACTIONS 449 [sym_kRepeat]; ACTIONS 451 [sym_kString]; ACTIONS 453 [sym_kTry];
   ACTIONS 455 [sym_kVar]; ACTIONS 457 [sym_kWhile]; ACTIONS 459 [sym_kWith]].

(** State 551. *)
Definition ts_parse_table_551 : parse_row :=
  [STATE 6213 [sym_if]; STATE 6327 [sym_ifElse; sym_while; sym_repeat; sym_for; sym_foreach;
   sym_try; sym_case; sym_block; sym_asm; sym_with; sym_raise; sym_statement; sym_goto;
   sym__statement]; STATE 15573 [sym_ifTr; sym_ifElseTr; sym_whileTr; sym_repeatTr; sym_forTr;
   sym_foreachTr; sym_tryTr; sym_caseTr]; STATE 14251 [sym_blockTr]; STATE 15573 [sym_asmTr;
   sym_withTr; sym_raiseTr; sym_statementTr; sym_gotoTr; sym__statementTr];
   STATE 13915 [sym_assignment]; STATE 11785 [sym_varAssignDef]; STATE 13915 [sym_varDef;
   sym_constDef]; STATE 6166 [sym_label]; STATE 15573 [sym__statementsTr]; STATE 8019 [sym__expr;
   sym_exprConditional]; STATE 7478 [sym__ref; sym_lambda; sym_inherited; sym_exprDot;
   sym_exprDeref; sym_exprAs; sym_exprTpl; sym_exprSubscript; sym_exprCall];
   STATE 8019 [sym_exprBinary; sym_exprUnary]; STATE 7478 [sym_exprParens; sym_exprBrackets;
   sym__literal; sym_literalString]; STATE 6664 [sym__literalString; sym_literalChar];
   STATE 7478 [sym_literalNumber]; STATE 7742 [sym__literalInt; sym__literalFloat];
   STATE 1380 [sym__ppIf]; STATE 6327 [sym__ppStatementBlock];
   STATE 11840 [aux_sym_labeledStatement_repeat1]; STATE 863 [aux_sym__statementsTr_repeat1];
   STATE 6664 [aux_sym_literalString_repeat1]; ACTIONS 397 [anon_sym_SEMI];
   ACTIONS 399 [anon_sym_LBRACK]; ACTIONS 401 [anon_sym_LPAREN];
   ACTIONS 403 [aux_sym__literalString_token1]; ACTIONS 405 [anon_sym_POUND];
   ACTIONS 407 [aux_sym__literalInt_token1]; ACTIONS 409 [aux_sym__literalInt_token2;
   aux_sym__literalInt_token3]; ACTIONS 407 [aux_sym__literalFloat_token1];
   ACTIONS 411 [aux_sym_ppUsesBlock_token1]; ACTIONS 413 [sym_kAdd; sym_kSub];
   ACTIONS 415 [sym_kAt]; ACTIONS 417 [sym_kTrue; sym_kFalse]; ACTIONS 419 [sym_labelNumber];
   ACTIONS 3 [sym__space]; ACTIONS 5 [sym_ppDirective]; ACTIONS 3 [sym_comment];
   ACTIONS 417 [sym_ppFragmentExpr]; ACTIONS 397 [sym_ppFragmentStmt];
   ACTIONS 403 [sym__literalStringMultiline]; ACTIONS 421 [sym_identifier];
   ACTIONS 423 [sym_kSpecialize]; ACTIONS 427 [sym_kAsm]; ACTIONS 429 [sym_kBegin];
   ACTIONS 431 [sym_kCase]; ACTIONS 433 [sym_kConst]; ACTIONS 3468 [sym_kEnd];
   ACTIONS 437 [sym_kFor]; ACTIONS 439 [sym_kFunction]; ACTIONS 441 [sym_kGoto];
   ACTIONS 443 [sym_kIf]; ACTIONS 445 [sym_kInherited]; ACTIONS 417 [sym_kNil];
   ACTIONS 415 [sym_kNot]; ACTIONS 439 [sym_kProcedure]; ACTIONS 447 [sym_kRaise];
   ACTIONS 449 [sym_kRepeat]; ACTIONS 451 [sym_kString]; ACTIONS 453 [sym_kTry];
   ACTIONS 455 [sym_kVar]; ACTIONS 457 [sym_kWhile]; ACTIONS 459 [sym_kWith]].

(** State 552. *)
Definition ts_parse_table_552 : parse_row :=
  [STATE 6213 [sym_if]; STATE 6327 [sym_ifElse; sym_while; sym_repeat; sym_for; sym_foreach;
   sym_try; sym_case; sym_block; sym_asm; sym_with; sym_raise; sym_statement; sym_goto;
   sym__statement]; STATE 15583 [sym_ifTr; sym_ifElseTr; sym_whileTr; sym_repeatTr; sym_forTr;
   sym_foreachTr; sym_tryTr; sym_caseTr]; STATE 14251 [sym_blockTr]; STATE 15583 [sym_asmTr;
   sym_withTr; sym_raiseTr; sym_statementTr; sym_gotoTr; sym__statementTr];
   STATE 13915 [sym_assignment]; STATE 11785 [sym_varAssignDef]; STATE 13915 [sym_varDef;
   sym_constDef]; STATE 6166 [sym_label]; STATE 15583 [sym__statementsTr]; STATE 8019 [sym__expr;
   sym_exprConditional]; STATE 7478 [sym__ref; sym_lambda; sym_inherited; sym_exprDot;
   sym_exprDeref; sym_exprAs; sym_exprTpl; sym_exprSubscript; sym_exprCall];
   STATE 8019 [sym_exprBinary; sym_exprUnary]; STATE 7478 [sym_exprParens; sym_exprBrackets;
   sym__literal; sym_literalString]; STATE 6664 [sym__literalString; sym_literalChar];
   STATE 7478 [sym_literalNumber]; STATE 7742 [sym__literalInt; sym__literalFloat];
   STATE 1380 [sym__ppIf]; STATE 6327 [sym__ppStatementBlock];
   STATE 11840 [aux_sym_labeledStatement_repeat1]; STATE 863 [aux_sym__statementsTr_repeat1];
   STATE 6664 [aux_sym_literalString_repeat1]; ACTIONS 397 [anon_sym_SEMI];
   ACTIONS 399 [anon_sym_LBRACK]; ACTIONS 401 [anon_sym_LPAREN];
   ACTIONS 403 [aux_sym__literalString_token1]; ACTIONS 405 [anon_sym_POUND];
   ACTIONS 407 [aux_sym__literalInt_token1]; ACTIONS 409 [aux_sym__literalInt_token2;
   aux_sym__literalInt_token3]; ACTIONS 407 [aux_sym__literalFloat_token1];
   ACTIONS 411 [aux_sym_ppUsesBlock_token1]; ACTIONS 413 [sym_kAdd; sym_kSub];
   ACTIONS 415 [sym_kAt]; ACTIONS 417 [sym_kTrue; sym_kFalse]; ACTIONS 419 [sym_labelNumber];
   ACTIONS 3 [sym__space]; ACTIONS 5 [sym_ppDirective]; ACTIONS 3 [sym_comment];
   ACTIONS 417 [sym_ppFragmentExpr]; ACTIONS 397 [sym_ppFragmentStmt];
   ACTIONS 403 [sym__literalStringMultiline]; ACTIONS 421 [sym_identifier];
   ACTIONS 423 [sym_kSpecialize]; ACTIONS 427 [sym_kAsm]; ACTIONS 429 [sym_kBegin];
   ACTIONS 431 [sym_kCase]; ACTIONS 433 [sym_kConst]; ACTIONS 3470 [sym_kEnd];
   ACTIONS 437 [sym_kFor]; ACTIONS 439 [sym_kFunction]; ACTIONS 441 [sym_kGoto];
   ACTIONS 443 [sym_kIf]; ACTIONS 445 [sym_kInherited]; ACTIONS 417 [sym_kNil];
   ACTIONS 415 [sym_kNot]; ACTIONS 439 [sym_kProcedure]; ACTIONS 447 [sym_kRaise];
   ACTIONS 449 [sym_kRepeat]; ACTIONS 451 [sym_kString]; ACTIONS 453 [sym_kTry];
   ACTIONS 455 [sym_kVar]; ACTIONS 457 [sym_kWhile]; ACTIONS 459 [sym_kWith]].

(** State 553. *)
Definition ts_parse_table_553 : parse_row :=
  [STATE 6213 [sym_if]; STATE 6327 [sym_ifElse; sym_while; sym_repeat; sym_for; sym_foreach;
   sym_try; sym_case; sym_block; sym_asm; sym_with; sym_raise; sym_statement; sym_goto;
   sym__statement]; STATE 14818 [sym_ifTr; sym_ifElseTr; sym_whileTr; sym_repeatTr; sym_forTr;
   sym_foreachTr; sym_tryTr; sym_caseTr]; STATE 14251 [sym_blockTr]; STATE 14818 [sym_asmTr;
   sym_withTr; sym_raiseTr; sym_statementTr; sym_gotoTr; sym__statementTr];
   STATE 13915 [sym_assignment]; STATE 11785 [sym_varAssignDef]; STATE 13915 [sym_varDef;
   sym_constDef]; STATE 6166 [sym_label]; STATE 14818 [sym__statementsTr]; STATE 8019 [sym__expr;
   sym_exprConditional]; STATE 7478 [sym__ref; sym_lambda; sym_inherited; sym_exprDot;
   sym_exprDeref; sym_exprAs; sym_exprTpl; sym_exprSubscript; sym_exprCall];
   STATE 8019 [sym_exprBinary; sym_exprUnary]; STATE 7478 [sym_exprParens; sym_exprBrackets;
   sym__literal; sym_literalString]; STATE 6664 [sym__literalString; sym_literalChar];
   STATE 7478 [sym_literalNumber]; STATE 7742 [sym__literalInt; sym__literalFloat];
   STATE 1380 [sym__ppIf]; STATE 6327 [sym__ppStatementBlock];
   STATE 11840 [aux_sym_labeledStatement_repeat1]; STATE 863 [aux_sym__statementsTr_repeat1];
   STATE 6664 [aux_sym_literalString_repeat1]; ACTIONS 397 [anon_sym_SEMI];
   ACTIONS 399 [anon_sym_LBRACK]; ACTIONS 401 [anon_sym_LPAREN];
   ACTIONS 403 [aux_sym__literalString_token1]; ACTIONS 405 [anon_sym_POUND];
   ACTIONS 407 [aux_sym__literalInt_token1]; ACTIONS 409 [aux_sym__literalInt_token2;
   aux_sym__literalInt_token3]; ACTIONS 407 [aux_sym__literalFloat_token1];
   ACTIONS 411 [aux_sym_ppUsesBlock_token1]; ACTIONS 413 [sym_kAdd; sym_kSub];
   ACTIONS 415 [sym_kAt]; ACTIONS 417 [sym_kTrue; sym_kFalse]; ACTIONS 419 [sym_labelNumber];
   ACTIONS 3 [sym__space]; ACTIONS 5 [sym_ppDirective]; ACTIONS 3 [sym_comment];
   ACTIONS 417 [sym_ppFragmentExpr]; ACTIONS 397 [sym_ppFragmentStmt];
   ACTIONS 403 [sym__literalStringMultiline]; ACTIONS 421 [sym_identifier];
   ACTIONS 423 [sym_kSpecialize]; ACTIONS 427 [sym_kAsm]; ACTIONS 429 [sym_kBegin];
   ACTIONS 431 [sym_kCase]; ACTIONS 433 [sym_kConst]; ACTIONS 3472 [sym_kEnd];
   ACTIONS 437 [sym_kFor]; ACTIONS 439 [sym_kFunction]; ACTIONS 441 [sym_kGoto];
   ACTIONS 443 [sym_kIf]; ACTIONS 445 [sym_kInherited]; ACTIONS 417 [sym_kNil];
   ACTIONS 415 [sym_kNot]; ACTIONS 439 [sym_kProcedure]; ACTIONS 447 [sym_kRaise];
   ACTIONS 449 [sym_kRepeat]; ACTIONS 451 [sym_kString]; ACTIONS 453 [sym_kTry];
   ACTIONS 455 [sym_kVar]; ACTIONS 457 [sym_kWhile]; ACTIONS 459 [sym_kWith]].

(** State 554. *)
Definition ts_parse_table_554 : parse_row :=
  [STATE 5543 [sym_if]; STATE 5725 [sym_ifElse; sym_while; sym_repeat; sym_for; sym_foreach;
   sym_try; sym_case; sym_block; sym_asm; sym_with; sym_raise; sym_statement; sym_goto;
   sym_labeledStatement; sym__statement]; STATE 11611 [sym_ifTr; sym_ifElseTr; sym_whileTr;
   sym_repeatTr; sym_forTr; sym_foreachTr; sym_tryTr; sym_caseTr]; STATE 11564 [sym_blockTr];
   STATE 11611 [sym_asmTr; sym_withTr; sym_raiseTr; sym_statementTr; sym_gotoTr;
   sym_labeledStatementTr; sym__statementTr]; STATE 11443 [sym_assignment];
   STATE 11931 [sym_varAssignDef]; STATE 11443 [sym_varDef; sym_constDef]; STATE 703 [sym_label];
   STATE 7199 [sym__expr; sym_exprConditional]; STATE 6884 [sym__ref; sym_lambda; sym_inherited;
   sym_exprDot; sym_exprDeref; sym_exprAs; sym_exprTpl; sym_exprSubscript; sym_exprCall];
   STATE 7199 [sym_exprBinary; sym_exprUnary]; STATE 6884 [sym_exprParens; sym_exprBrackets;
   sym__literal; sym_literalString]; STATE 5959 [sym__literalString; sym_literalChar];
   STATE 6884 [sym_literalNumber]; STATE 6992 [sym__literalInt; sym__literalFloat];
   STATE 5959 [aux_sym_literalString_repeat1]; ACTIONS 3194 [anon_sym_SEMI];
   ACTIONS 3196 [anon_sym_LBRACK]; ACTIONS 3198 [anon_sym_LPAREN];
   ACTIONS 3200 [aux_sym__literalString_token1]; ACTIONS 3202 [anon_sym_POUND];
   ACTIONS 3204 [aux_sym__literalInt_token1]; ACTIONS 3206 [aux_sym__literalInt_token2;
   aux_sym__literalInt_token3]; ACTIONS 3204 [aux_sym__literalFloat_token1];
   ACTIONS 3208 [sym_kAdd; sym_kSub]; ACTIONS 3210 [sym_kAt]; ACTIONS 3212 [sym_kTrue;
   sym_kFalse]; ACTIONS 3214 [sym_labelNumber]; ACTIONS 3 [sym__space];
   ACTIONS 5 [sym_ppDirective]; ACTIONS 3 [sym_comment]; ACTIONS 3212 [sym_ppFragmentExpr];
   ACTIONS 3200 [sym__literalStringMultiline]; ACTIONS 3216 [sym_identifier];
   ACTIONS 3218 [sym_kSpecialize]; ACTIONS 3220 [sym_kAsm]; ACTIONS 3222 [sym_kBegin];
   ACTIONS 3224 [sym_kCase]; ACTIONS 3226 [sym_kConst]; ACTIONS 3398 [sym_kElse];
   ACTIONS 3230 [sym_kEnd; sym_kFinalization]; ACTIONS 3232 [sym_kFor];
   ACTIONS 3234 [sym_kFunction]; ACTIONS 3236 [sym_kGoto]; ACTIONS 3238 [sym_kIf];
   ACTIONS 3230 [sym_kImplementation]; ACTIONS 3240 [sym_kInherited];
   ACTIONS 3230 [sym_kInitialization; sym_kInterface]; ACTIONS 3212 [sym_kNil];
   ACTIONS 3210 [sym_kNot]; ACTIONS 3234 [sym_kProcedure]; ACTIONS 3242 [sym_kRaise];
   ACTIONS 3244 [sym_kRepeat]; ACTIONS 3246 [sym_kString]; ACTIONS 3248 [sym_kTry];
   ACTIONS 3250 [sym_kVar]; ACTIONS 3252 [sym_kWhile]; ACTIONS 3254 [sym_kWith]].

(** State 555. *)
Definition ts_parse_table_555 : parse_row :=
  [STATE 6213 [sym_if]; STATE 6327 [sym_ifElse; sym_while; sym_repeat; sym_for; sym_foreach;
   sym_try; sym_case; sym_block; sym_asm; sym_with; sym_raise; sym_statement; sym_goto;
   sym__statement]; STATE 15690 [sym_ifTr; sym_ifElseTr; sym_whileTr; sym_repeatTr; sym_forTr;
   sym_foreachTr; sym_tryTr; sym_caseTr]; STATE 14251 [sym_blockTr]; STATE 15690 [sym_asmTr;
   sym_withTr; sym_raiseTr; sym_statementTr; sym_gotoTr; sym__statementTr];
   STATE 13915 [sym_assignment]; STATE 11785 [sym_varAssignDef]; STATE 13915 [sym_varDef;
   sym_constDef]; STATE 6166 [sym_label]; STATE 15690 [sym__statementsTr]; STATE 8019 [sym__expr;
   sym_exprConditional]; STATE 7478 [sym__ref; sym_lambda; sym_inherited; sym_exprDot;
   sym_exprDeref; sym_exprAs; sym_exprTpl; sym_exprSubscript; sym_exprCall];
   STATE 8019 [sym_exprBinary; sym_exprUnary]; STATE 7478 [sym_exprParens; sym_exprBrackets;
   sym__literal; sym_literalString]; STATE 6664 [sym__literalString; sym_literalChar];
   STATE 7478 [sym_literalNumber]; STATE 7742 [sym__literalInt; sym__literalFloat];
   STATE 1380 [sym__ppIf]; STATE 6327 [sym__ppStatementBlock];
   STATE 11840 [aux_sym_labeledStatement_repeat1]; STATE 863 [aux_sym__statementsTr_repeat1];
   STATE 6664 [aux_sym_literalString_repeat1]; ACTIONS 397 [anon_sym_SEMI];
   ACTIONS 399 [anon_sym_LBRACK]; ACTIONS 401 [anon_sym_LPAREN];
   ACTIONS 403 [aux_sym__literalString_token1]; ACTIONS 405 [anon_sym_POUND];
   ACTIONS 407 [aux_sym__literalInt_token1]; ACTIONS 409 [aux_sym__literalInt_token2;
   aux_sym__literalInt_token3]; ACTIONS 407 [aux_sym__literalFloat_token1];
   ACTIONS 411 [aux_sym_ppUsesBlock_token1]; ACTIONS 413 [sym_kAdd; sym_kSub];
   ACTIONS 415 [sym_kAt]; ACTIONS 417 [sym_kTrue; sym_kFalse]; ACTIONS 419 [sym_labelNumber];
   ACTIONS 3 [sym__space]; ACTIONS 5 [sym_ppDirective]; ACTIONS 3 [sym_comment];
   ACTIONS 417 [sym_ppFragmentExpr]; ACTIONS 397 [sym_ppFragmentStmt];
   ACTIONS 403 [sym__literalStringMultiline]; ACTIONS 421 [sym_identifier];
   ACTIONS 423 [sym_kSpecialize]; ACTIONS 427 [sym_kAsm]; ACTIONS 429 [sym_kBegin];
   ACTIONS 431 [sym_kCase]; ACTIONS 433 [sym_kConst]; ACTIONS 2312 [sym_kEnd];
   ACTIONS 437 [sym_kFor]; ACTIONS 439 [sym_kFunction]; ACTIONS 441 [sym_kGoto];
   ACTIONS 443 [sym_kIf]; ACTIONS 445 [sym_kInherited]; ACTIONS 417 [sym_kNil];
   ACTIONS 415 [sym_kNot]; ACTIONS 439 [sym_kProcedure]; ACTIONS 447 [sym_kRaise];
   ACTIONS 449 [sym_kRepeat]; ACTIONS 451 [sym_kString]; ACTIONS 453 [sym_kTry];
   ACTIONS 455 [sym_kVar]; ACTIONS 457 [sym_kWhile]; ACTIONS 459 [sym_kWith]].

(** State 556. *)
Definition ts_parse_table_556 : parse_row :=
  [STATE 6213 [sym_if]; STATE 6327 [sym_ifElse; sym_while; sym_repeat; sym_for; sym_foreach;
   sym_try; sym_case; sym_block; sym_asm; sym_with; sym_raise; sym_statement; sym_goto;
   sym__statement]; STATE 14960 [sym_ifTr; sym_ifElseTr; sym_whileTr; sym_repeatTr; sym_forTr;
   sym_foreachTr; sym_tryTr; sym_caseTr]; STATE 14251 [sym_blockTr]; STATE 14960 [sym_asmTr;
   sym_withTr; sym_raiseTr; sym_statementTr; sym_gotoTr; sym__statementTr];
   STATE 13915 [sym_assignment]; STATE 11785 [sym_varAssignDef]; STATE 13915 [sym_varDef;
   sym_constDef]; STATE 6166 [sym_label]; STATE 14960 [sym__statementsTr]; STATE 8019 [sym__expr;
   sym_exprConditional]; STATE 7478 [sym__ref; sym_lambda; sym_inherited; sym_exprDot;
   sym_exprDeref; sym_exprAs; sym_exprTpl; sym_exprSubscript; sym_exprCall];
   STATE 8019 [sym_exprBinary; sym_exprUnary]; STATE 7478 [sym_exprParens; sym_exprBrackets;
   sym__literal; sym_literalString]; STATE 6664 [sym__literalString; sym_literalChar];
   STATE 7478 [sym_literalNumber]; STATE 7742 [sym__literalInt; sym__literalFloat];
   STATE 1380 [sym__ppIf]; STATE 6327 [sym__ppStatementBlock];
   STATE 11840 [aux_sym_labeledStatement_repeat1]; STATE 863 [aux_sym__statementsTr_repeat1];
   STATE 6664 [aux_sym_literalString_repeat1]; ACTIONS 397 [anon_sym_SEMI];
   ACTIONS 399 [anon_sym_LBRACK]; ACTIONS 401 [anon_sym_LPAREN];
   ACTIONS 403 [aux_sym__literalString_token1]; ACTIONS 405 [anon_sym_POUND];
   ACTIONS 407 [aux_sym__literalInt_token1]; ACTIONS 409 [aux_sym__literalInt_token2;
   aux_sym__literalInt_token3]; ACTIONS 407 [aux_sym__literalFloat_token1];
   ACTIONS 411 [aux_sym_ppUsesBlock_token1]; ACTIONS 413 [sym_kAdd; sym_kSub];
   ACTIONS 415 [sym_kAt]; ACTIONS 417 [sym_kTrue; sym_kFalse]; ACTIONS 419 [sym_labelNumber];
   ACTIONS 3 [sym__space]; ACTIONS 5 [sym_ppDirective]; ACTIONS 3 [sym_comment];
   ACTIONS 417 [sym_ppFragmentExpr]; ACTIONS 397 [sym_ppFragmentStmt];
   ACTIONS 403 [sym__literalStringMultiline]; ACTIONS 421 [sym_identifier];
   ACTIONS 423 [sym_kSpecialize]; ACTIONS 427 [sym_kAsm]; ACTIONS 429 [sym_kBegin];
   ACTIONS 431 [sym_kCase]; ACTIONS 433 [sym_kConst]; ACTIONS 3474 [sym_kEnd];
   ACTIONS 437 [sym_kFor]; ACTIONS 439 [sym_kFunction]; ACTIONS 441 [sym_kGoto];
   ACTIONS 443 [sym_kIf]; ACTIONS 445 [sym_kInherited]; ACTIONS 417 [sym_kNil];
   ACTIONS 415 [sym_kNot]; ACTIONS 439 [sym_kProcedure]; ACTIONS 447 [sym_kRaise];
   ACTIONS 449 [sym_kRepeat]; ACTIONS 451 [sym_kString]; ACTIONS 453 [sym_kTry];
   ACTIONS 455 [sym_kVar]; ACTIONS 457 [sym_kWhile]; ACTIONS 459 [sym_kWith]].

(** State 557. *)
Definition ts_parse_table_557 : parse_row :=
  [STATE 6213 [sym_if]; STATE 6327 [sym_ifElse; sym_while; sym_repeat; sym_for; sym_foreach;
   sym_try; sym_case; sym_block; sym_asm; sym_with; sym_raise; sym_statement; sym_goto;
   sym__statement]; STATE 15699 [sym_ifTr; sym_ifElseTr; sym_whileTr; sym_repeatTr; sym_forTr;
   sym_foreachTr; sym_tryTr; sym_caseTr]; STATE 14251 [sym_blockTr]; STATE 15699 [sym_asmTr;
   sym_withTr; sym_raiseTr; sym_statementTr; sym_gotoTr; sym__statementTr];
   STATE 13915 [sym_assignment]; STATE 11785 [sym_varAssignDef]; STATE 13915 [sym_varDef;
   sym_constDef]; STATE 6166 [sym_label]; STATE 15699 [sym__statementsTr]; STATE 8019 [sym__expr;
   sym_exprConditional]; STATE 7478 [sym__ref; sym_lambda; sym_inherited; sym_exprDot;
   sym_exprDeref; sym_exprAs; sym_exprTpl; sym_exprSubscript; sym_exprCall];
   STATE 8019 [sym_exprBinary; sym_exprUnary]; STATE 7478 [sym_exprParens; sym_exprBrackets;
   sym__literal; sym_literalString]; STATE 6664 [sym__literalString; sym_literalChar];
   STATE 7478 [sym_literalNumber]; STATE 7742 [sym__literalInt; sym__literalFloat];
   STATE 1380 [sym__ppIf]; STATE 6327 [sym__ppStatementBlock];
   STATE 11840 [aux_sym_labeledStatement_repeat1]; STATE 863 [aux_sym__statementsTr_repeat1];
   STATE 6664 [aux_sym_literalString_repeat1]; ACTIONS 397 [anon_sym_SEMI];
   ACTIONS 399 [anon_sym_LBRACK]; ACTIONS 401 [anon_sym_LPAREN];
   ACTIONS 403 [aux_sym__literalString_token1]; ACTIONS 405 [anon_sym_POUND];
   ACTIONS 407 [aux_sym__literalInt_token1]; ACTIONS 409 [aux_sym__literalInt_token2;
   aux_sym__literalInt_token3]; ACTIONS 407 [aux_sym__literalFloat_token1];
   ACTIONS 411 [aux_sym_ppUsesBlock_token1]; ACTIONS 413 [sym_kAdd; sym_kSub];
   ACTIONS 415 [sym_kAt]; ACTIONS 417 [sym_kTrue; sym_kFalse]; ACTIONS 419 [sym_labelNumber];
   ACTIONS 3 [sym__space]; ACTIONS 5 [sym_ppDirective]; ACTIONS 3 [sym_comment];
   ACTIONS 417 [sym_ppFragmentExpr]; ACTIONS 397 [sym_ppFragmentStmt];
   ACTIONS 403 [sym__literalStringMultiline]; ACTIONS 421 [sym_identifier];
   ACTIONS 423 [sym_kSpecialize]; ACTIONS 427 [sym_kAsm]; ACTIONS 429 [sym_kBegin];
   ACTIONS 431 [sym_kCase]; ACTIONS 433 [sym_kConst]; ACTIONS 2316 [sym_kEnd];
   ACTIONS 437 [sym_kFor]; ACTIONS 439 [sym_kFunction]; ACTIONS 441 [sym_kGoto];
   ACTIONS 443 [sym_kIf]; ACTIONS 445 [sym_kInherited]; ACTIONS 417 [sym_kNil];
   ACTIONS 415 [sym_kNot]; ACTIONS 439 [sym_kProcedure]; ACTIONS 447 [sym_kRaise];
   ACTIONS 449 [sym_kRepeat]; ACTIONS 451 [sym_kString]; ACTIONS 453 [sym_kTry];
   ACTIONS 455 [sym_kVar]; ACTIONS 457 [sym_kWhile]; ACTIONS 459 [sym_kWith]].

(** State 558. *)
Definition ts_parse_table_558 : parse_row :=
  [STATE 6213 [sym_if]; STATE 6327 [sym_ifElse; sym_while; sym_repeat; sym_for; sym_foreach;
   sym_try; sym_case; sym_block; sym_asm; sym_with; sym_raise; sym_statement; sym_goto;
   sym__statement]; STATE 15705 [sym_ifTr; sym_ifElseTr; sym_whileTr; sym_repeatTr; sym_forTr;
   sym_foreachTr; sym_tryTr; sym_caseTr]; STATE 14251 [sym_blockTr]; STATE 15705 [sym_asmTr;
   sym_withTr; sym_raiseTr; sym_statementTr; sym_gotoTr; sym__statementTr];
   STATE 13915 [sym_assignment]; STATE 11785 [sym_varAssignDef]; STATE 13915 [sym_varDef;
   sym_constDef]; STATE 6166 [sym_label]; STATE 15705 [sym__statementsTr]; STATE 8019 [sym__expr;
   sym_exprConditional]; STATE 7478 [sym__ref; sym_lambda; sym_inherited; sym_exprDot;
   sym_exprDeref; sym_exprAs; sym_exprTpl; sym_exprSubscript; sym_exprCall];
   STATE 8019 [sym_exprBinary; sym_exprUnary]; STATE 7478 [sym_exprParens; sym_exprBrackets;
   sym__literal; sym_literalString]; STATE 6664 [sym__literalString; sym_literalChar];
   STATE 7478 [sym_literalNumber]; STATE 7742 [sym__literalInt; sym__literalFloat];
   STATE 1380 [sym__ppIf]; STATE 6327 [sym__ppStatementBlock];
   STATE 11840 [aux_sym_labeledStatement_repeat1]; STATE 863 [aux_sym__statementsTr_repeat1];
   STATE 6664 [aux_sym_literalString_repeat1]; ACTIONS 397 [anon_sym_SEMI];
   ACTIONS 399 [anon_sym_LBRACK]; ACTIONS 401 [anon_sym_LPAREN];
   ACTIONS 403 [aux_sym__literalString_token1]; ACTIONS 405 [anon_sym_POUND];
   ACTIONS 407 [aux_sym__literalInt_token1]; ACTIONS 409 [aux_sym__literalInt_token2;
   aux_sym__literalInt_token3]; ACTIONS 407 [aux_sym__literalFloat_token1];
   ACTIONS 411 [aux_sym_ppUsesBlock_token1]; ACTIONS 413 [sym_kAdd; sym_kSub];
   ACTIONS 415 [sym_kAt]; ACTIONS 417 [sym_kTrue; sym_kFalse]; ACTIONS 419 [sym_labelNumber];
   ACTIONS 3 [sym__space]; ACTIONS 5 [sym_ppDirective]; ACTIONS 3 [sym_comment];
   ACTIONS 417 [sym_ppFragmentExpr]; ACTIONS 397 [sym_ppFragmentStmt];
   ACTIONS 403 [sym__literalStringMultiline]; ACTIONS 421 [sym_identifier];
   ACTIONS 423 [sym_kSpecialize]; ACTIONS 427 [sym_kAsm]; ACTIONS 429 [sym_kBegin];
   ACTIONS 431 [sym_kCase]; ACTIONS 433 [sym_kConst]; ACTIONS 3476 [sym_kEnd];
   ACTIONS 437 [sym_kFor]; ACTIONS 439 [sym_kFunction]; ACTIONS 441 [sym_kGoto];
   ACTIONS 443 [sym_kIf]; ACTIONS 445 [sym_kInherited]; ACTIONS 417 [sym_kNil];
   ACTIONS 415 [sym_kNot]; ACTIONS 439 [sym_kProcedure]; ACTIONS 447 [sym_kRaise];
   ACTIONS 449 [sym_kRepeat]; ACTIONS 451 [sym_kString]; ACTIONS 453 [sym_kTry];
   ACTIONS 455 [sym_kVar]; ACTIONS 457 [sym_kWhile]; ACTIONS 459 [sym_kWith]].

(** State 559. *)
Definition ts_parse_table_559 : parse_row :=
  [STATE 6213 [sym_if]; STATE 6327 [sym_ifElse; sym_while; sym_repeat; sym_for; sym_foreach;
   sym_try; sym_case; sym_block; sym_asm; sym_with; sym_raise; sym_statement; sym_goto;
   sym__statement]; STATE 15725 [sym_ifTr; sym_ifElseTr; sym_whileTr; sym_repeatTr; sym_forTr;
   sym_foreachTr; sym_tryTr; sym_caseTr]; STATE 14251 [sym_blockTr]; STATE 15725 [sym_asmTr;
   sym_withTr; sym_raiseTr; sym_statementTr; sym_gotoTr; sym__statementTr];
   STATE 13915 [sym_assignment]; STATE 11785 [sym_varAssignDef]; STATE 13915 [sym_varDef;
   sym_constDef]; STATE 6166 [sym_label]; STATE 15725 [sym__statementsTr]; STATE 8019 [sym__expr;
   sym_exprConditional]; STATE 7478 [sym__ref; sym_lambda; sym_inherited; sym_exprDot;
   sym_exprDeref; sym_exprAs; sym_exprTpl; sym_exprSubscript; sym_exprCall];
   STATE 8019 [sym_exprBinary; sym_exprUnary]; STATE 7478 [sym_exprParens; sym_exprBrackets;
   sym__literal; sym_literalString]; STATE 6664 [sym__literalString; sym_literalChar];
   STATE 7478 [sym_literalNumber]; STATE 7742 [sym__literalInt; sym__literalFloat];
   STATE 1380 [sym__ppIf]; STATE 6327 [sym__ppStatementBlock];
   STATE 11840 [aux_sym_labeledStatement_repeat1]; STATE 863 [aux_sym__statementsTr_repeat1];
   STATE 6664 [aux_sym_literalString_repeat1]; ACTIONS 397 [anon_sym_SEMI];
   ACTIONS 399 [anon_sym_LBRACK]; ACTIONS 401 [anon_sym_LPAREN];
   ACTIONS 403 [aux_sym__literalString_token1]; ACTIONS 405 [anon_sym_POUND];
   ACTIONS 407 [aux_sym__literalInt_token1]; ACTIONS 409 [aux_sym__literalInt_token2;
   aux_sym__literalInt_token3]; ACTIONS 407 [aux_sym__literalFloat_token1];
   ACTIONS 411 [aux_sym_ppUsesBlock_token1]; ACTIONS 413 [sym_kAdd; sym_kSub];
   ACTIONS 415 [sym_kAt]; ACTIONS 417 [sym_kTrue; sym_kFalse]; ACTIONS 419 [sym_labelNumber];
   ACTIONS 3 [sym__space]; ACTIONS 5 [sym_ppDirective]; ACTIONS 3 [sym_comment];
   ACTIONS 417 [sym_ppFragmentExpr]; ACTIONS 397 [sym_ppFragmentStmt];
   ACTIONS 403 [sym__literalStringMultiline]; ACTIONS 421 [sym_identifier];
   ACTIONS 423 [sym_kSpecialize]; ACTIONS 427 [sym_kAsm]; ACTIONS 429 [sym_kBegin];
   ACTIONS 431 [sym_kCase]; ACTIONS 433 [sym_kConst]; ACTIONS 3478 [sym_kEnd];
   ACTIONS 437 [sym_kFor]; ACTIONS 439 [sym_kFunction]; ACTIONS 441 [sym_kGoto];
   ACTIONS 443 [sym_kIf]; ACTIONS 445 [sym_kInherited]; ACTIONS 417 [sym_kNil];
   ACTIONS 415 [sym_kNot]; ACTIONS 439 [sym_kProcedure]; ACTIONS 447 [sym_kRaise];
   ACTIONS 449 [sym_kRepeat]; ACTIONS 451 [sym_kString]; ACTIONS 453 [sym_kTry];
   ACTIONS 455 [sym_kVar]; ACTIONS 457 [sym_kWhile]; ACTIONS 459 [sym_kWith]].

(** State 560. *)
Definition ts_parse_table_560 : parse_row :=
  [STATE 6213 [sym_if]; STATE 6327 [sym_ifElse; sym_while; sym_repeat; sym_for; sym_foreach;
   sym_try; sym_case; sym_block; sym_asm; sym_with; sym_raise; sym_statement; sym_goto;
   sym__statement]; STATE 15731 [sym_ifTr; sym_ifElseTr; sym_whileTr; sym_repeatTr; sym_forTr;
   sym_foreachTr; sym_tryTr; sym_caseTr]; STATE 14251 [sym_blockTr]; STATE 15731 [sym_asmTr;
   sym_withTr; sym_raiseTr; sym_statementTr; sym_gotoTr; sym__statementTr];
   STATE 13915 [sym_assignment]; STATE 11785 [sym_varAssignDef]; STATE 13915 [sym_varDef;
   sym_constDef]; STATE 6166 [sym_label]; STATE 15731 [sym__statementsTr]; STATE 8019 [sym__expr;
   sym_exprConditional]; STATE 7478 [sym__ref; sym_lambda; sym_inherited; sym_exprDot;
   sym_exprDeref; sym_exprAs; sym_exprTpl; sym_exprSubscript; sym_exprCall];
   STATE 8019 [sym_exprBinary; sym_exprUnary]; STATE 7478 [sym_exprParens; sym_exprBrackets;
   sym__literal; sym_literalString]; STATE 6664 [sym__literalString; sym_literalChar];
   STATE 7478 [sym_literalNumber]; STATE 7742 [sym__literalInt; sym__literalFloat];
   STATE 1380 [sym__ppIf]; STATE 6327 [sym__ppStatementBlock];
   STATE 11840 [aux_sym_labeledStatement_repeat1]; STATE 863 [aux_sym__statementsTr_repeat1];
   STATE 6664 [aux_sym_literalString_repeat1]; ACTIONS 397 [anon_sym_SEMI];
   ACTIONS 399 [anon_sym_LBRACK]; ACTIONS 401 [anon_sym_LPAREN];
   ACTIONS 403 [aux_sym__literalString_token1]; ACTIONS 405 [anon_sym_POUND];
   ACTIONS 407 [aux_sym__literalInt_token1]; ACTIONS 409 [aux_sym__literalInt_token2;
   aux_sym__literalInt_token3]; ACTIONS 407 [aux_sym__literalFloat_token1];
   ACTIONS 411 [aux_sym_ppUsesBlock_token1]; ACTIONS 413 [sym_kAdd; sym_kSub];
   ACTIONS 415 [sym_kAt]; ACTIONS 417 [sym_kTrue; sym_kFalse]; ACTIONS 419 [sym_labelNumber];
   ACTIONS 3 [sym__space]; ACTIONS 5 [sym_ppDirective]; ACTIONS 3 [sym_comment];
   ACTIONS 417 [sym_ppFragmentExpr]; ACTIONS 397 [sym_ppFragmentStmt];
   ACTIONS 403 [sym__literalStringMultiline]; ACTIONS 421 [sym_identifier];
   ACTIONS 423 [sym_kSpecialize]; ACTIONS 427 [sym_kAsm]; ACTIONS 429 [sym_kBegin];
   ACTIONS 431 [sym_kCase]; ACTIONS 433 [sym_kConst]; ACTIONS 3480 [sym_kEnd];
   ACTIONS 437 [sym_kFor]; ACTIONS 439 [sym_kFunction]; ACTIONS 441 [sym_kGoto];
   ACTIONS 443 [sym_kIf]; ACTIONS 445 [sym_kInherited]; ACTIONS 417 [sym_kNil];
   ACTIONS 415 [sym_kNot]; ACTIONS 439 [sym_kProcedure]; ACTIONS 447 [sym_kRaise];
   ACTIONS 449 [sym_kRepeat]; ACTIONS 451 [sym_kString]; ACTIONS 453 [sym_kTry];
   ACTIONS 455 [sym_kVar]; ACTIONS 457 [sym_kWhile]; ACTIONS 459 [sym_kWith]].

(** State 561. *)
Definition ts_parse_table_561 : parse_row :=
  [STATE 6213 [sym_if]; STATE 6327 [sym_ifElse; sym_while; sym_repeat; sym_for; sym_foreach;
   sym_try; sym_case; sym_block; sym_asm; sym_with; sym_raise; sym_statement; sym_goto;
   sym__statement]; STATE 15054 [sym_ifTr; sym_ifElseTr; sym_whileTr; sym_repeatTr; sym_forTr;
   sym_foreachTr; sym_tryTr; sym_caseTr]; STATE 14251 [sym_blockTr]; STATE 15054 [sym_asmTr;
   sym_withTr; sym_raiseTr; sym_statementTr; sym_gotoTr; sym__statementTr];
   STATE 13915 [sym_assignment]; STATE 11785 [sym_varAssignDef]; STATE 13915 [sym_varDef;
   sym_constDef]; STATE 6166 [sym_label]; STATE 15054 [sym__statementsTr]; STATE 8019 [sym__expr;
   sym_exprConditional]; STATE 7478 [sym__ref; sym_lambda; sym_inherited; sym_exprDot;
   sym_exprDeref; sym_exprAs; sym_exprTpl; sym_exprSubscript; sym_exprCall];
   STATE 8019 [sym_exprBinary; sym_exprUnary]; STATE 7478 [sym_exprParens; sym_exprBrackets;
   sym__literal; sym_literalString]; STATE 6664 [sym__literalString; sym_literalChar];
   STATE 7478 [sym_literalNumber]; STATE 7742 [sym__literalInt; sym__literalFloat];
   STATE 1380 [sym__ppIf]; STATE 6327 [sym__ppStatementBlock];
   STATE 11840 [aux_sym_labeledStatement_repeat1]; STATE 863 [aux_sym__statementsTr_repeat1];
   STATE 6664 [aux_sym_literalString_repeat1]; ACTIONS 397 [anon_sym_SEMI];
   ACTIONS 399 [anon_sym_LBRACK]; ACTIONS 401 [anon_sym_LPAREN];
   ACTIONS 403 [aux_sym__literalString_token1]; ACTIONS 405 [anon_sym_POUND];
   ACTIONS 407 [aux_sym__literalInt_token1]; ACTIONS 409 [aux_sym__literalInt_token2;
   aux_sym__literalInt_token3]; ACTIONS 407 [aux_sym__literalFloat_token1];
   ACTIONS 411 [aux_sym_ppUsesBlock_token1]; ACTIONS 413 [sym_kAdd; sym_kSub];
   ACTIONS 415 [sym_kAt]; ACTIONS 417 [sym_kTrue; sym_kFalse]; ACTIONS 419 [sym_labelNumber];
   ACTIONS 3 [sym__space]; ACTIONS 5 [sym_ppDirective]; ACTIONS 3 [sym_comment];
   ACTIONS 417 [sym_ppFragmentExpr]; ACTIONS 397 [sym_ppFragmentStmt];
   ACTIONS 403 [sym__literalStringMultiline]; ACTIONS 421 [sym_identifier];
   ACTIONS 423 [sym_kSpecialize]; ACTIONS 427 [sym_kAsm]; ACTIONS 429 [sym_kBegin];
   ACTIONS 431 [sym_kCase]; ACTIONS 433 [sym_kConst]; ACTIONS 3482 [sym_kEnd];
   ACTIONS 437 [sym_kFor]; ACTIONS 439 [sym_kFunction]; ACTIONS 441 [sym_kGoto];
   ACTIONS 443 [sym_kIf]; ACTIONS 445 [sym_kInherited]; ACTIONS 417 [sym_kNil];
   ACTIONS 415 [sym_kNot]; ACTIONS 439 [sym_kProcedure]; ACTIONS 447 [sym_kRaise];
   ACTIONS 449 [sym_kRepeat]; ACTIONS 451 [sym_kString]; ACTIONS 453 [sym_kTry];
   ACTIONS 455 [sym_kVar]; ACTIONS 457 [sym_kWhile]; ACTIONS 459 [sym_kWith]].

(** State 562. *)
Definition ts_parse_table_562 : parse_row :=
  [STATE 6213 [sym_if]; STATE 6327 [sym_ifElse; sym_while; sym_repeat; sym_for; sym_foreach;
   sym_try; sym_case; sym_block; sym_asm; sym_with; sym_raise; sym_statement; sym_goto;
   sym__statement]; STATE 14447 [sym_ifTr; sym_ifElseTr; sym_whileTr; sym_repeatTr; sym_forTr;
   sym_foreachTr; sym_tryTr; sym_caseTr]; STATE 14251 [sym_blockTr]; STATE 14447 [sym_asmTr;
   sym_withTr; sym_raiseTr; sym_statementTr; sym_gotoTr; sym__statementTr];
   STATE 13915 [sym_assignment]; STATE 11785 [sym_varAssignDef]; STATE 13915 [sym_varDef;
   sym_constDef]; STATE 6166 [sym_label]; STATE 14447 [sym__statementsTr]; STATE 8019 [sym__expr;
   sym_exprConditional]; STATE 7478 [sym__ref; sym_lambda; sym_inherited; sym_exprDot;
   sym_exprDeref; sym_exprAs; sym_exprTpl; sym_exprSubscript; sym_exprCall];
   STATE 8019 [sym_exprBinary; sym_exprUnary]; STATE 7478 [sym_exprParens; sym_exprBrackets;
   sym__literal; sym_literalString]; STATE 6664 [sym__literalString; sym_literalChar];
   STATE 7478 [sym_literalNumber]; STATE 7742 [sym__literalInt; sym__literalFloat];
   STATE 1380 [sym__ppIf]; STATE 6327 [sym__ppStatementBlock];
   STATE 11840 [aux_sym_labeledStatement_repeat1]; STATE 863 [aux_sym__statementsTr_repeat1];
   STATE 6664 [aux_sym_literalString_repeat1]; ACTIONS 397 [anon_sym_SEMI];
   ACTIONS 399 [anon_sym_LBRACK]; ACTIONS 401 [anon_sym_LPAREN];
   ACTIONS 403 [aux_sym__literalString_token1]; ACTIONS 405 [anon_sym_POUND];
   ACTIONS 407 [aux_sym__literalInt_token1]; ACTIONS 409 [aux_sym__literalInt_token2;
   aux_sym__literalInt_token3]; ACTIONS 407 [aux_sym__literalFloat_token1];
   ACTIONS 411 [aux_sym_ppUsesBlock_token1]; ACTIONS 413 [sym_kAdd; sym_kSub];
   ACTIONS 415 [sym_kAt]; ACTIONS 417 [sym_kTrue; sym_kFalse]; ACTIONS 419 [sym_labelNumber];
   ACTIONS 3 [sym__space]; ACTIONS 5 [sym_ppDirective]; ACTIONS 3 [sym_comment];
   ACTIONS 417 [sym_ppFragmentExpr]; ACTIONS 397 [sym_ppFragmentStmt];
   ACTIONS 403 [sym__literalStringMultiline]; ACTIONS 421 [sym_identifier];
   ACTIONS 423 [sym_kSpecialize]; ACTIONS 427 [sym_kAsm]; ACTIONS 429 [sym_kBegin];
   ACTIONS 431 [sym_kCase]; ACTIONS 433 [sym_kConst]; ACTIONS 1260 [sym_kEnd];
   ACTIONS 437 [sym_kFor]; ACTIONS 439 [sym_kFunction]; ACTIONS 441 [sym_kGoto];
   ACTIONS 443 [sym_kIf]; ACTIONS 445 [sym_kInherited]; ACTIONS 417 [sym_kNil];
   ACTIONS 415 [sym_kNot]; ACTIONS 439 [sym_kProcedure]; ACTIONS 447 [sym_kRaise];
   ACTIONS 449 [sym_kRepeat]; ACTIONS 451 [sym_kString]; ACTIONS 453 [sym_kTry];
   ACTIONS 455 [sym_kVar]; ACTIONS 457 [sym_kWhile]; ACTIONS 459 [sym_kWith]].

(** State 563. *)
Definition ts_parse_table_563 : parse_row :=
  [STATE 6213 [sym_if]; STATE 6327 [sym_ifElse; sym_while; sym_repeat; sym_for; sym_foreach;
   sym_try; sym_case; sym_block; sym_asm; sym_with; sym_raise; sym_statement; sym_goto;
   sym__statement]; STATE 15384 [sym_ifTr; sym_ifElseTr; sym_whileTr; sym_repeatTr; sym_forTr;
   sym_foreachTr; sym_tryTr; sym_caseTr]; STATE 14251 [sym_blockTr]; STATE 15384 [sym_asmTr;
   sym_withTr; sym_raiseTr; sym_statementTr; sym_gotoTr; sym__statementTr];
   STATE 13915 [sym_assignment]; STATE 11785 [sym_varAssignDef]; STATE 13915 [sym_varDef;
   sym_constDef]; STATE 6166 [sym_label]; STATE 15384 [sym__statementsTr]; STATE 8019 [sym__expr;
   sym_exprConditional]; STATE 7478 [sym__ref; sym_lambda; sym_inherited; sym_exprDot;
   sym_exprDeref; sym_exprAs; sym_exprTpl; sym_exprSubscript; sym_exprCall];
   STATE 8019 [sym_exprBinary; sym_exprUnary]; STATE 7478 [sym_exprParens; sym_exprBrackets;
   sym__literal; sym_literalString]; STATE 6664 [sym__literalString; sym_literalChar];
   STATE 7478 [sym_literalNumber]; STATE 7742 [sym__literalInt; sym__literalFloat];
   STATE 1380 [sym__ppIf]; STATE 6327 [sym__ppStatementBlock];
   STATE 11840 [aux_sym_labeledStatement_repeat1]; STATE 863 [aux_sym__statementsTr_repeat1];
   STATE 6664 [aux_sym_literalString_repeat1]; ACTIONS 397 [anon_sym_SEMI];
   ACTIONS 399 [anon_sym_LBRACK]; ACTIONS 401 [anon_sym_LPAREN];
   ACTIONS 403 [aux_sym__literalString_token1]; ACTIONS 405 [anon_sym_POUND];
   ACTIONS 407 [aux_sym__literalInt_token1]; ACTIONS 409 [aux_sym__literalInt_token2;
   aux_sym__literalInt_token3]; ACTIONS 407 [aux_sym__literalFloat_token1];
   ACTIONS 411 [aux_sym_ppUsesBlock_token1]; ACTIONS 413 [sym_kAdd; sym_kSub];
   ACTIONS 415 [sym_kAt]; ACTIONS 417 [sym_kTrue; sym_kFalse]; ACTIONS 419 [sym_labelNumber];
   ACTIONS 3 [sym__space]; ACTIONS 5 [sym_ppDirective]; ACTIONS 3 [sym_comment];
   ACTIONS 417 [sym_ppFragmentExpr]; ACTIONS 397 [sym_ppFragmentStmt];
   ACTIONS 403 [sym__literalStringMultiline]; ACTIONS 421 [sym_identifier];
   ACTIONS 423 [sym_kSpecialize]; ACTIONS 427 [sym_kAsm]; ACTIONS 429 [sym_kBegin];
   ACTIONS 431 [sym_kCase]; ACTIONS 433 [sym_kConst]; ACTIONS 1266 [sym_kEnd];
   ACTIONS 437 [sym_kFor]; ACTIONS 439 [sym_kFunction]; ACTIONS 441 [sym_kGoto];
   ACTIONS 443 [sym_kIf]; ACTIONS 445 [sym_kInherited]; ACTIONS 417 [sym_kNil];
   ACTIONS 415 [sym_kNot]; ACTIONS 439 [sym_kProcedure]; ACTIONS 447 [sym_kRaise];
   ACTIONS 449 [sym_kRepeat]; ACTIONS 451 [sym_kString]; ACTIONS 453 [sym_kTry];
   ACTIONS 455 [sym_kVar]; ACTIONS 457 [sym_kWhile]; ACTIONS 459 [sym_kWith]].

(** State 564. *)
Definition ts_parse_table_564 : parse_row :=
  [STATE 6213 [sym_if]; STATE 6327 [sym_ifElse; sym_while; sym_repeat; sym_for; sym_foreach;
   sym_try; sym_case; sym_block; sym_asm; sym_with; sym_raise; sym_statement; sym_goto;
   sym__statement]; STATE 15864 [sym_ifTr; sym_ifElseTr; sym_whileTr; sym_repeatTr; sym_forTr;
   sym_foreachTr; sym_tryTr; sym_caseTr]; STATE 14251 [sym_blockTr]; STATE 15864 [sym_asmTr;
   sym_withTr; sym_raiseTr; sym_statementTr; sym_gotoTr; sym__statementTr];
   STATE 13915 [sym_assignment]; STATE 11785 [sym_varAssignDef]; STATE 13915 [sym_varDef;
   sym_constDef]; STATE 6166 [sym_label]; STATE 15864 [sym__statementsTr]; STATE 8019 [sym__expr;
   sym_exprConditional]; STATE 7478 [sym__ref; sym_lambda; sym_inherited; sym_exprDot;
   sym_exprDeref; sym_exprAs; sym_exprTpl; sym_exprSubscript; sym_exprCall];
   STATE 8019 [sym_exprBinary; sym_exprUnary]; STATE 7478 [sym_exprParens; sym_exprBrackets;
   sym__literal; sym_literalString]; STATE 6664 [sym__literalString; sym_literalChar];
   STATE 7478 [sym_literalNumber]; STATE 7742 [sym__literalInt; sym__literalFloat];
   STATE 1380 [sym__ppIf]; STATE 6327 [sym__ppStatementBlock];
   STATE 11840 [aux_sym_labeledStatement_repeat1]; STATE 863 [aux_sym__statementsTr_repeat1];
   STATE 6664 [aux_sym_literalString_repeat1]; ACTIONS 397 [anon_sym_SEMI];
   ACTIONS 399 [anon_sym_LBRACK]; ACTIONS 401 [anon_sym_LPAREN];
   ACTIONS 403 [aux_sym__literalString_token1]; ACTIONS 405 [anon_sym_POUND];
   ACTIONS 407 [aux_sym__literalInt_token1]; ACTIONS 409 [aux_sym__literalInt_token2;
   aux_sym__literalInt_token3]; ACTIONS 407 [aux_sym__literalFloat_token1];
   ACTIONS 411 [aux_sym_ppUsesBlock_token1]; ACTIONS 413 [sym_kAdd; sym_kSub];
   ACTIONS 415 [sym_kAt]; ACTIONS 417 [sym_kTrue; sym_kFalse]; ACTIONS 419 [sym_labelNumber];
   ACTIONS 3 [sym__space]; ACTIONS 5 [sym_ppDirective]; ACTIONS 3 [sym_comment];
   ACTIONS 417 [sym_ppFragmentExpr]; ACTIONS 397 [sym_ppFragmentStmt];
   ACTIONS 403 [sym__literalStringMultiline]; ACTIONS 421 [sym_identifier];
   ACTIONS 423 [sym_kSpecialize]; ACTIONS 427 [sym_kAsm]; ACTIONS 429 [sym_kBegin];
   ACTIONS 431 [sym_kCase]; ACTIONS 433 [sym_kConst]; ACTIONS 2390 [sym_kEnd];
   ACTIONS 437 [sym_kFor]; ACTIONS 439 [sym_kFunction]; ACTIONS 441 [sym_kGoto];
   ACTIONS 443 [sym_kIf]; ACTIONS 445 [sym_kInherited]; ACTIONS 417 [sym_kNil];
   ACTIONS 415 [sym_kNot]; ACTIONS 439 [sym_kProcedure]; ACTIONS 447 [sym_kRaise];
   ACTIONS 449 [sym_kRepeat]; ACTIONS 451 [sym_kString]; ACTIONS 453 [sym_kTry];
   ACTIONS 455 [sym_kVar]; ACTIONS 457 [sym_kWhile]; ACTIONS 459 [sym_kWith]].

(** State 565. *)
Definition ts_parse_table_565 : parse_row :=
  [STATE 6213 [sym_if]; STATE 6327 [sym_ifElse; sym_while; sym_repeat; sym_for; sym_foreach;
   sym_try; sym_case; sym_block; sym_asm; sym_with; sym_raise; sym_statement; sym_goto;
   sym__statement]; STATE 15870 [sym_ifTr; sym_ifElseTr; sym_whileTr; sym_repeatTr; sym_forTr;
   sym_foreachTr; sym_tryTr; sym_caseTr]; STATE 14251 [sym_blockTr]; STATE 15870 [sym_asmTr;
   sym_withTr; sym_raiseTr; sym_statementTr; sym_gotoTr; sym__statementTr];
   STATE 13915 [sym_assignment]; STATE 11785 [sym_varAssignDef]; STATE 13915 [sym_varDef;
   sym_constDef]; STATE 6166 [sym_label]; STATE 15870 [sym__statementsTr]; STATE 8019 [sym__expr;
   sym_exprConditional]; STATE 7478 [sym__ref; sym_lambda; sym_inherited; sym_exprDot;
   sym_exprDeref; sym_exprAs; sym_exprTpl; sym_exprSubscript; sym_exprCall];
   STATE 8019 [sym_exprBinary; sym_exprUnary]; STATE 7478 [sym_exprParens; sym_exprBrackets;
   sym__literal; sym_literalString]; STATE 6664 [sym__literalString; sym_literalChar];
   STATE 7478 [sym_literalNumber]; STATE 7742 [sym__literalInt; sym__literalFloat];
   STATE 1380 [sym__ppIf]; STATE 6327 [sym__ppStatementBlock];
   STATE 11840 [aux_sym_labeledStatement_repeat1]; STATE 863 [aux_sym__statementsTr_repeat1];
   STATE 6664 [aux_sym_literalString_repeat1]; ACTIONS 397 [anon_sym_SEMI];
   ACTIONS 399 [anon_sym_LBRACK]; ACTIONS 401 [anon_sym_LPAREN];
   ACTIONS 403 [aux_sym__literalString_token1]; ACTIONS 405 [anon_sym_POUND];
   ACTIONS 407 [aux_sym__literalInt_token1]; ACTIONS 409 [aux_sym__literalInt_token2;
   aux_sym__literalInt_token3]; ACTIONS 407 [aux_sym__literalFloat_token1];
   ACTIONS 411 [aux_sym_ppUsesBlock_token1]; ACTIONS 413 [sym_kAdd; sym_kSub];
   ACTIONS 415 [sym_kAt]; ACTIONS 417 [sym_kTrue; sym_kFalse]; ACTIONS 419 [sym_labelNumber];
   ACTIONS 3 [sym__space]; ACTIONS 5 [sym_ppDirective]; ACTIONS 3 [sym_comment];
   ACTIONS 417 [sym_ppFragmentExpr]; ACTIONS 397 [sym_ppFragmentStmt];
   ACTIONS 403 [sym__literalStringMultiline]; ACTIONS 421 [sym_identifier];
   ACTIONS 423 [sym_kSpecialize]; ACTIONS 427 [sym_kAsm]; ACTIONS 429 [sym_kBegin];
   ACTIONS 431 [sym_kCase]; ACTIONS 433 [sym_kConst]; ACTIONS 2394 [sym_kEnd];
   ACTIONS 437 [sym_kFor]; ACTIONS 439 [sym_kFunction]; ACTIONS 441 [sym_kGoto];
   ACTIONS 443 [sym_kIf]; ACTIONS 445 [sym_kInherited]; ACTIONS 417 [sym_kNil];
   ACTIONS 415 [sym_kNot]; ACTIONS 439 [sym_kProcedure]; ACTIONS 447 [sym_kRaise];
   ACTIONS 449 [sym_kRepeat]; ACTIONS 451 [sym_kString]; ACTIONS 453 [sym_kTry];
   ACTIONS 455 [sym_kVar]; ACTIONS 457 [sym_kWhile]; ACTIONS 459 [sym_kWith]].

(** State 566. *)
Definition ts_parse_table_566 : parse_row :=
  [STATE 6213 [sym_if]; STATE 6327 [sym_ifElse; sym_while; sym_repeat; sym_for; sym_foreach;
   sym_try; sym_case; sym_block; sym_asm; sym_with; sym_raise; sym_statement; sym_goto;
   sym__statement]; STATE 15879 [sym_ifTr; sym_ifElseTr; sym_whileTr; sym_repeatTr; sym_forTr;
   sym_foreachTr; sym_tryTr; sym_caseTr]; STATE 14251 [sym_blockTr]; STATE 15879 [sym_asmTr;
   sym_withTr; sym_raiseTr; sym_statementTr; sym_gotoTr; sym__statementTr];
   STATE 13915 [sym_assignment]; STATE 11785 [sym_varAssignDef]; STATE 13915 [sym_varDef;
   sym_constDef]; STATE 6166 [sym_label]; STATE 15879 [sym__statementsTr]; STATE 8019 [sym__expr;
   sym_exprConditional]; STATE 7478 [sym__ref; sym_lambda; sym_inherited; sym_exprDot;
   sym_exprDeref; sym_exprAs; sym_exprTpl; sym_exprSubscript; sym_exprCall];
   STATE 8019 [sym_exprBinary; sym_exprUnary]; STATE 7478 [sym_exprParens; sym_exprBrackets;
   sym__literal; sym_literalString]; STATE 6664 [sym__literalString; sym_literalChar];
   STATE 7478 [sym_literalNumber]; STATE 7742 [sym__literalInt; sym__literalFloat];
   STATE 1380 [sym__ppIf]; STATE 6327 [sym__ppStatementBlock];
   STATE 11840 [aux_sym_labeledStatement_repeat1]; STATE 863 [aux_sym__statementsTr_repeat1];
   STATE 6664 [aux_sym_literalString_repeat1]; ACTIONS 397 [anon_sym_SEMI];
   ACTIONS 399 [anon_sym_LBRACK]; ACTIONS 401 [anon_sym_LPAREN];
   ACTIONS 403 [aux_sym__literalString_token1]; ACTIONS 405 [anon_sym_POUND];
   ACTIONS 407 [aux_sym__literalInt_token1]; ACTIONS 409 [aux_sym__literalInt_token2;
   aux_sym__literalInt_token3]; ACTIONS 407 [aux_sym__literalFloat_token1];
   ACTIONS 411 [aux_sym_ppUsesBlock_token1]; ACTIONS 413 [sym_kAdd; sym_kSub];
   ACTIONS 415 [sym_kAt]; ACTIONS 417 [sym_kTrue; sym_kFalse]; ACTIONS 419 [sym_labelNumber];
   ACTIONS 3 [sym__space]; ACTIONS 5 [sym_ppDirective]; ACTIONS 3 [sym_comment];
   ACTIONS 417 [sym_ppFragmentExpr]; ACTIONS 397 [sym_ppFragmentStmt];
   ACTIONS 403 [sym__literalStringMultiline]; ACTIONS 421 [sym_identifier];
   ACTIONS 423 [sym_kSpecialize]; ACTIONS 427 [sym_kAsm]; ACTIONS 429 [sym_kBegin];
   ACTIONS 431 [sym_kCase]; ACTIONS 433 [sym_kConst]; ACTIONS 3484 [sym_kEnd];
   ACTIONS 437 [sym_kFor]; ACTIONS 439 [sym_kFunction]; ACTIONS 441 [sym_kGoto];
   ACTIONS 443 [sym_kIf]; ACTIONS 445 [sym_kInherited]; ACTIONS 417 [sym_kNil];
   ACTIONS 415 [sym_kNot]; ACTIONS 439 [sym_kProcedure]; ACTIONS 447 [sym_kRaise];
   ACTIONS 449 [sym_kRepeat]; ACTIONS 451 [sym_kString]; ACTIONS 453 [sym_kTry];
   ACTIONS 455 [sym_kVar]; ACTIONS 457 [sym_kWhile]; ACTIONS 459 [sym_kWith]].

(** State 567. *)
Definition ts_parse_table_567 : parse_row :=
  [STATE 6213 [sym_if]; STATE 6327 [sym_ifElse; sym_while; sym_repeat; sym_for; sym_foreach;
   sym_try; sym_case; sym_block; sym_asm; sym_with; sym_raise; sym_statement; sym_goto;
   sym__statement]; STATE 15899 [sym_ifTr; sym_ifElseTr; sym_whileTr; sym_repeatTr; sym_forTr;
   sym_foreachTr; sym_tryTr; sym_caseTr]; STATE 14251 [sym_blockTr]; STATE 15899 [sym_asmTr;
   sym_withTr; sym_raiseTr; sym_statementTr; sym_gotoTr; sym__statementTr];
   STATE 13915 [sym_assignment]; STATE 11785 [sym_varAssignDef]; STATE 13915 [sym_varDef;
   sym_constDef]; STATE 6166 [sym_label]; STATE 15899 [sym__statementsTr]; STATE 8019 [sym__expr;
   sym_exprConditional]; STATE 7478 [sym__ref; sym_lambda; sym_inherited; sym_exprDot;
   sym_exprDeref; sym_exprAs; sym_exprTpl; sym_exprSubscript; sym_exprCall];
   STATE 8019 [sym_exprBinary; sym_exprUnary]; STATE 7478 [sym_exprParens; sym_exprBrackets;
   sym__literal; sym_literalString]; STATE 6664 [sym__literalString; sym_literalChar];
   STATE 7478 [sym_literalNumber]; STATE 7742 [sym__literalInt; sym__literalFloat];
   STATE 1380 [sym__ppIf]; STATE 6327 [sym__ppStatementBlock];
   STATE 11840 [aux_sym_labeledStatement_repeat1]; STATE 863 [aux_sym__statementsTr_repeat1];
   STATE 6664 [aux_sym_literalString_repeat1]; ACTIONS 397 [anon_sym_SEMI];
   ACTIONS 399 [anon_sym_LBRACK]; ACTIONS 401 [anon_sym_LPAREN];
   ACTIONS 403 [aux_sym__literalString_token1]; ACTIONS 405 [anon_sym_POUND];
   ACTIONS 407 [aux_sym__literalInt_token1]; ACTIONS 409 [aux_sym__literalInt_token2;
   aux_sym__literalInt_token3]; ACTIONS 407 [aux_sym__literalFloat_token1];
   ACTIONS 411 [aux_sym_ppUsesBlock_token1]; ACTIONS 413 [sym_kAdd; sym_kSub];
   ACTIONS 415 [sym_kAt]; ACTIONS 417 [sym_kTrue; sym_kFalse]; ACTIONS 419 [sym_labelNumber];
   ACTIONS 3 [sym__space]; ACTIONS 5 [sym_ppDirective]; ACTIONS 3 [sym_comment];
   ACTIONS 417 [sym_ppFragmentExpr]; ACTIONS 397 [sym_ppFragmentStmt];
   ACTIONS 403 [sym__literalStringMultiline]; ACTIONS 421 [sym_identifier];
   ACTIONS 423 [sym_kSpecialize]; ACTIONS 427 [sym_kAsm]; ACTIONS 429 [sym_kBegin];
   ACTIONS 431 [sym_kCase]; ACTIONS 433 [sym_kConst]; ACTIONS 3486 [sym_kEnd];
   ACTIONS 437 [sym_kFor]; ACTIONS 439 [sym_kFunction]; ACTIONS 441 [sym_kGoto];
   ACTIONS 443 [sym_kIf]; ACTIONS 445 [sym_kInherited]; ACTIONS 417 [sym_kNil];
   ACTIONS 415 [sym_kNot]; ACTIONS 439 [sym_kProcedure]; ACTIONS 447 [sym_kRaise];
   ACTIONS 449 [sym_kRepeat]; ACTIONS 451 [sym_kString]; ACTIONS 453 [sym_kTry];
   ACTIONS 455 [sym_kVar]; ACTIONS 457 [sym_kWhile]; ACTIONS 459 [sym_kWith]].

(** State 568. *)
Definition ts_parse_table_568 : parse_row :=
  [STATE 6213 [sym_if]; STATE 6327 [sym_ifElse; sym_while; sym_repeat; sym_for; sym_foreach;
   sym_try; sym_case; sym_block; sym_asm; sym_with; sym_raise; sym_statement; sym_goto;
   sym__statement]; STATE 15912 [sym_ifTr; sym_ifElseTr; sym_whileTr; sym_repeatTr; sym_forTr;
   sym_foreachTr; sym_tryTr; sym_caseTr]; STATE 14251 [sym_blockTr]; STATE 15912 [sym_asmTr;
   sym_withTr; sym_raiseTr; sym_statementTr; sym_gotoTr; sym__statementTr];
   STATE 13915 [sym_assignment]; STATE 11785 [sym_varAssignDef]; STATE 13915 [sym_varDef;
   sym_constDef]; STATE 6166 [sym_label]; STATE 15912 [sym__statementsTr]; STATE 8019 [sym__expr;
   sym_exprConditional]; STATE 7478 [sym__ref; sym_lambda; sym_inherited; sym_exprDot;
   sym_exprDeref; sym_exprAs; sym_exprTpl; sym_exprSubscript; sym_exprCall];
   STATE 8019 [sym_exprBinary; sym_exprUnary]; STATE 7478 [sym_exprParens; sym_exprBrackets;
   sym__literal; sym_literalString]; STATE 6664 [sym__literalString; sym_literalChar];
   STATE 7478 [sym_literalNumber]; STATE 7742 [sym__literalInt; sym__literalFloat];
   STATE 1380 [sym__ppIf]; STATE 6327 [sym__ppStatementBlock];
   STATE 11840 [aux_sym_labeledStatement_repeat1]; STATE 863 [aux_sym__statementsTr_repeat1];
   STATE 6664 [aux_sym_literalString_repeat1]; ACTIONS 397 [anon_sym_SEMI];
   ACTIONS 399 [anon_sym_LBRACK]; ACTIONS 401 [anon_sym_LPAREN];
   ACTIONS 403 [aux_sym__literalString_token1]; ACTIONS 405 [anon_sym_POUND];
   ACTIONS 407 [aux_sym__literalInt_token1]; ACTIONS 409 [aux_sym__literalInt_token2;
   aux_sym__literalInt_token3]; ACTIONS 407 [aux_sym__literalFloat_token1];
   ACTIONS 411 [aux_sym_ppUsesBlock_token1]; ACTIONS 413 [sym_kAdd; sym_kSub];
   ACTIONS 415 [sym_kAt]; ACTIONS 417 [sym_kTrue; sym_kFalse]; ACTIONS 419 [sym_labelNumber];
   ACTIONS 3 [sym__space]; ACTIONS 5 [sym_ppDirective]; ACTIONS 3 [sym_comment];
   ACTIONS 417 [sym_ppFragmentExpr]; ACTIONS 397 [sym_ppFragmentStmt];
   ACTIONS 403 [sym__literalStringMultiline]; ACTIONS 421 [sym_identifier];
   ACTIONS 423 [sym_kSpecialize]; ACTIONS 427 [sym_kAsm]; ACTIONS 429 [sym_kBegin];
   ACTIONS 431 [sym_kCase]; ACTIONS 433 [sym_kConst]; ACTIONS 3488 [sym_kEnd];
   ACTIONS 437 [sym_kFor]; ACTIONS 439 [sym_kFunction]; ACTIONS 441 [sym_kGoto];
   ACTIONS 443 [sym_kIf]; ACTIONS 445 [sym_kInherited]; ACTIONS 417 [sym_kNil];
   ACTIONS 415 [sym_kNot]; ACTIONS 439 [sym_kProcedure]; ACTIONS 447 [sym_kRaise];
   ACTIONS 449 [sym_kRepeat]; ACTIONS 451 [sym_kString]; ACTIONS 453 [sym_kTry];
   ACTIONS 455 [sym_kVar]; ACTIONS 457 [sym_kWhile]; ACTIONS 459 [sym_kWith]].

(** State 569. *)
Definition ts_parse_table_569 : parse_row :=
  [STATE 6213 [sym_if]; STATE 6327 [sym_ifElse; sym_while; sym_repeat; sym_for; sym_foreach;
   sym_try; sym_case; sym_block; sym_asm; sym_with; sym_raise; sym_statement; sym_goto;
   sym__statement]; STATE 15878 [sym_ifTr; sym_ifElseTr; sym_whileTr; sym_repeatTr; sym_forTr;
   sym_foreachTr; sym_tryTr; sym_caseTr]; STATE 14251 [sym_blockTr]; STATE 15878 [sym_asmTr;
   sym_withTr; sym_raiseTr; sym_statementTr; sym_gotoTr; sym__statementTr];
   STATE 13915 [sym_assignment]; STATE 11785 [sym_varAssignDef]; STATE 13915 [sym_varDef;
   sym_constDef]; STATE 6166 [sym_label]; STATE 15878 [sym__statementsTr]; STATE 8019 [sym__expr;
   sym_exprConditional]; STATE 7478 [sym__ref; sym_lambda; sym_inherited; sym_exprDot;
   sym_exprDeref; sym_exprAs; sym_exprTpl; sym_exprSubscript; sym_exprCall];
   STATE 8019 [sym_exprBinary; sym_exprUnary]; STATE 7478 [sym_exprParens; sym_exprBrackets;
   sym__literal; sym_literalString]; STATE 6664 [sym__literalString; sym_literalChar];
   STATE 7478 [sym_literalNumber]; STATE 7742 [sym__literalInt; sym__literalFloat];
   STATE 1380 [sym__ppIf]; STATE 6327 [sym__ppStatementBlock];
   STATE 11840 [aux_sym_labeledStatement_repeat1]; STATE 863 [aux_sym__statementsTr_repeat1];
   STATE 6664 [aux_sym_literalString_repeat1]; ACTIONS 397 [anon_sym_SEMI];
   ACTIONS 399 [anon_sym_LBRACK]; ACTIONS 401 [anon_sym_LPAREN];
   ACTIONS 403 [aux_sym__literalString_token1]; ACTIONS 405 [anon_sym_POUND];
   ACTIONS 407 [aux_sym__literalInt_token1]; ACTIONS 409 [aux_sym__literalInt_token2;
   aux_sym__literalInt_token3]; ACTIONS 407 [aux_sym__literalFloat_token1];
   ACTIONS 411 [aux_sym_ppUsesBlock_token1]; ACTIONS 413 [sym_kAdd; sym_kSub];
   ACTIONS 415 [sym_kAt]; ACTIONS 417 [sym_kTrue; sym_kFalse]; ACTIONS 419 [sym_labelNumber];
   ACTIONS 3 [sym__space]; ACTIONS 5 [sym_ppDirective]; ACTIONS 3 [sym_comment];
   ACTIONS 417 [sym_ppFragmentExpr]; ACTIONS 397 [sym_ppFragmentStmt];
   ACTIONS 403 [sym__literalStringMultiline]; ACTIONS 421 [sym_identifier];
   ACTIONS 423 [sym_kSpecialize]; ACTIONS 427 [sym_kAsm]; ACTIONS 429 [sym_kBegin];
   ACTIONS 431 [sym_kCase]; ACTIONS 433 [sym_kConst]; ACTIONS 1276 [sym_kEnd];
   ACTIONS 437 [sym_kFor]; ACTIONS 439 [sym_kFunction]; ACTIONS 441 [sym_kGoto];
   ACTIONS 443 [sym_kIf]; ACTIONS 445 [sym_kInherited]; ACTIONS 417 [sym_kNil];
   ACTIONS 415 [sym_kNot]; ACTIONS 439 [sym_kProcedure]; ACTIONS 447 [sym_kRaise];
   ACTIONS 449 [sym_kRepeat]; ACTIONS 451 [sym_kString]; ACTIONS 453 [sym_kTry];
   ACTIONS 455 [sym_kVar]; ACTIONS 457 [sym_kWhile]; ACTIONS 459 [sym_kWith]].

(** State 570. *)
Definition ts_parse_table_570 : parse_row :=
  [STATE 6213 [sym_if]; STATE 6327 [sym_ifElse; sym_while; sym_repeat; sym_for; sym_foreach;
   sym_try; sym_case; sym_block; sym_asm; sym_with; sym_raise; sym_statement; sym_goto;
   sym__statement]; STATE 15922 [sym_ifTr; sym_ifElseTr; sym_whileTr; sym_repeatTr; sym_forTr;
   sym_foreachTr; sym_tryTr; sym_caseTr]; STATE 14251 [sym_blockTr]; STATE 15922 [sym_asmTr;
   sym_withTr; sym_raiseTr; sym_statementTr; sym_gotoTr; sym__statementTr];
   STATE 13915 [sym_assignment]; STATE 11785 [sym_varAssignDef]; STATE 13915 [sym_varDef;
   sym_constDef]; STATE 6166 [sym_label]; STATE 15922 [sym__statementsTr]; STATE 8019 [sym__expr;
   sym_exprConditional]; STATE 7478 [sym__ref; sym_lambda; sym_inherited; sym_exprDot;
   sym_exprDeref; sym_exprAs; sym_exprTpl; sym_exprSubscript; sym_exprCall];
   STATE 8019 [sym_exprBinary; sym_exprUnary]; STATE 7478 [sym_exprParens; sym_exprBrackets;
   sym__literal; sym_literalString]; STATE 6664 [sym__literalString; sym_literalChar];
   STATE 7478 [sym_literalNumber]; STATE 7742 [sym__literalInt; sym__literalFloat];
   STATE 1380 [sym__ppIf]; STATE 6327 [sym__ppStatementBlock];
   STATE 11840 [aux_sym_labeledStatement_repeat1]; STATE 863 [aux_sym__statementsTr_repeat1];
   STATE 6664 [aux_sym_literalString_repeat1]; ACTIONS 397 [anon_sym_SEMI];
   ACTIONS 399 [anon_sym_LBRACK]; ACTIONS 401 [anon_sym_LPAREN];
   ACTIONS 403 [aux_sym__literalString_token1]; ACTIONS 405 [anon_sym_POUND];
   ACTIONS 407 [aux_sym__literalInt_token1]; ACTIONS 409 [aux_sym__literalInt_token2;
   aux_sym__literalInt_token3]; ACTIONS 407 [aux_sym__literalFloat_token1];
   ACTIONS 411 [aux_sym_ppUsesBlock_token1]; ACTIONS 413 [sym_kAdd; sym_kSub];
   ACTIONS 415 [sym_kAt]; ACTIONS 417 [sym_kTrue; sym_kFalse]; ACTIONS 419 [sym_labelNumber];
   ACTIONS 3 [sym__space]; ACTIONS 5 [sym_ppDirective]; ACTIONS 3 [sym_comment];
   ACTIONS 417 [sym_ppFragmentExpr]; ACTIONS 397 [sym_ppFragmentStmt];
   ACTIONS 403 [sym__literalStringMultiline]; ACTIONS 421 [sym_identifier];
   ACTIONS 423 [sym_kSpecialize]; ACTIONS 427 [sym_kAsm]; ACTIONS 429 [sym_kBegin];
   ACTIONS 431 [sym_kCase]; ACTIONS 433 [sym_kConst]; ACTIONS 1280 [sym_kEnd];
   ACTIONS 437 [sym_kFor]; ACTIONS 439 [sym_kFunction]; ACTIONS 441 [sym_kGoto];
   ACTIONS 443 [sym_kIf]; ACTIONS 445 [sym_kInherited]; ACTIONS 417 [sym_kNil];
   ACTIONS 415 [sym_kNot]; ACTIONS 439 [sym_kProcedure]; ACTIONS 447 [sym_kRaise];
   ACTIONS 449 [sym_kRepeat]; ACTIONS 451 [sym_kString]; ACTIONS 453 [sym_kTry];
   ACTIONS 455 [sym_kVar]; ACTIONS 457 [sym_kWhile]; ACTIONS 459 [sym_kWith]].

(** State 571. *)
Definition ts_parse_table_571 : parse_row :=
  [STATE 6213 [sym_if]; STATE 6327 [sym_ifElse; sym_while; sym_repeat; sym_for; sym_foreach;
   sym_try; sym_case; sym_block; sym_asm; sym_with; sym_raise; sym_statement; sym_goto;
   sym__statement]; STATE 14538 [sym_ifTr; sym_ifElseTr; sym_whileTr; sym_repeatTr; sym_forTr;
   sym_foreachTr; sym_tryTr; sym_caseTr]; STATE 14251 [sym_blockTr]; STATE 14538 [sym_asmTr;
   sym_withTr; sym_raiseTr; sym_statementTr; sym_gotoTr; sym__statementTr];
   STATE 13915 [sym_assignment]; STATE 11785 [sym_varAssignDef]; STATE 13915 [sym_varDef;
   sym_constDef]; STATE 6166 [sym_label]; STATE 14538 [sym__statementsTr]; STATE 8019 [sym__expr;
   sym_exprConditional]; STATE 7478 [sym__ref; sym_lambda; sym_inherited; sym_exprDot;
   sym_exprDeref; sym_exprAs; sym_exprTpl; sym_exprSubscript; sym_exprCall];
   STATE 8019 [sym_exprBinary; sym_exprUnary]; STATE 7478 [sym_exprParens; sym_exprBrackets;
   sym__literal; sym_literalString]; STATE 6664 [sym__literalString; sym_literalChar];
   STATE 7478 [sym_literalNumber]; STATE 7742 [sym__literalInt; sym__literalFloat];
   STATE 1380 [sym__ppIf]; STATE 6327 [sym__ppStatementBlock];
   STATE 11840 [aux_sym_labeledStatement_repeat1]; STATE 863 [aux_sym__statementsTr_repeat1];
   STATE 6664 [aux_sym_literalString_repeat1]; ACTIONS 397 [anon_sym_SEMI];
   ACTIONS 399 [anon_sym_LBRACK]; ACTIONS 401 [anon_sym_LPAREN];
   ACTIONS 403 [aux_sym__literalString_token1]; ACTIONS 405 [anon_sym_POUND];
   ACTIONS 407 [aux_sym__literalInt_token1]; ACTIONS 409 [aux_sym__literalInt_token2;
   aux_sym__literalInt_token3]; ACTIONS 407 [aux_sym__literalFloat_token1];
   ACTIONS 411 [aux_sym_ppUsesBlock_token1]; ACTIONS 413 [sym_kAdd; sym_kSub];
   ACTIONS 415 [sym_kAt]; ACTIONS 417 [sym_kTrue; sym_kFalse]; ACTIONS 419 [sym_labelNumber];
   ACTIONS 3 [sym__space]; ACTIONS 5 [sym_ppDirective]; ACTIONS 3 [sym_comment];
   ACTIONS 417 [sym_ppFragmentExpr]; ACTIONS 397 [sym_ppFragmentStmt];
   ACTIONS 403 [sym__literalStringMultiline]; ACTIONS 421 [sym_identifier];
   ACTIONS 423 [sym_kSpecialize]; ACTIONS 427 [sym_kAsm]; ACTIONS 429 [sym_kBegin];
   ACTIONS 431 [sym_kCase]; ACTIONS 433 [sym_kConst]; ACTIONS 3490 [sym_kEnd];
   ACTIONS 437 [sym_kFor]; ACTIONS 439 [sym_kFunction]; ACTIONS 441 [sym_kGoto];
   ACTIONS 443 [sym_kIf]; ACTIONS 445 [sym_kInherited]; ACTIONS 417 [sym_kNil];
   ACTIONS 415 [sym_kNot]; ACTIONS 439 [sym_kProcedure]; ACTIONS 447 [sym_kRaise];
   ACTIONS 449 [sym_kRepeat]; ACTIONS 451 [sym_kString]; ACTIONS 453 [sym_kTry];
   ACTIONS 455 [sym_kVar]; ACTIONS 457 [sym_kWhile]; ACTIONS 459 [sym_kWith]].

(** State 572. *)
Definition ts_parse_table_572 : parse_row :=
  [STATE 6213 [sym_if]; STATE 6327 [sym_ifElse; sym_while; sym_repeat; sym_for; sym_foreach;
   sym_try; sym_case; sym_block; sym_asm; sym_with; sym_raise; sym_statement; sym_goto;
   sym__statement]; STATE 14140 [sym_ifTr; sym_ifElseTr; sym_whileTr; sym_repeatTr; sym_forTr;
   sym_foreachTr; sym_tryTr; sym_caseTr]; STATE 14251 [sym_blockTr]; STATE 14140 [sym_asmTr;
   sym_withTr; sym_raiseTr; sym_statementTr; sym_gotoTr; sym__statementTr];
   STATE 13915 [sym_assignment]; STATE 11785 [sym_varAssignDef]; STATE 13915 [sym_varDef;
   sym_constDef]; STATE 6166 [sym_label]; STATE 14140 [sym__statementsTr]; STATE 8019 [sym__expr;
   sym_exprConditional]; STATE 7478 [sym__ref; sym_lambda; sym_inherited; sym_exprDot;
   sym_exprDeref; sym_exprAs; sym_exprTpl; sym_exprSubscript; sym_exprCall];
   STATE 8019 [sym_exprBinary; sym_exprUnary]; STATE 7478 [sym_exprParens; sym_exprBrackets;
   sym__literal; sym_literalString]; STATE 6664 [sym__literalString; sym_literalChar];
   STATE 7478 [sym_literalNumber]; STATE 7742 [sym__literalInt; sym__literalFloat];
   STATE 1380 [sym__ppIf]; STATE 6327 [sym__ppStatementBlock];
   STATE 11840 [aux_sym_labeledStatement_repeat1]; STATE 863 [aux_sym__statementsTr_repeat1];
   STATE 6664 [aux_sym_literalString_repeat1]; ACTIONS 397 [anon_sym_SEMI];
   ACTIONS 399 [anon_sym_LBRACK]; ACTIONS 401 [anon_sym_LPAREN];
   ACTIONS 403 [aux_sym__literalString_token1]; ACTIONS 405 [anon_sym_POUND];
   ACTIONS 407 [aux_sym__literalInt_token1]; ACTIONS 409 [aux_sym__literalInt_token2;
   aux_sym__literalInt_token3]; ACTIONS 407 [aux_sym__literalFloat_token1];
   ACTIONS 411 [aux_sym_ppUsesBlock_token1]; ACTIONS 413 [sym_kAdd; sym_kSub];
   ACTIONS 415 [sym_kAt]; ACTIONS 417 [sym_kTrue; sym_kFalse]; ACTIONS 419 [sym_labelNumber];
   ACTIONS 3 [sym__space]; ACTIONS 5 [sym_ppDirective]; ACTIONS 3 [sym_comment];
   ACTIONS 417 [sym_ppFragmentExpr]; ACTIONS 397 [sym_ppFragmentStmt];
   ACTIONS 403 [sym__literalStringMultiline]; ACTIONS 421 [sym_identifier];
   ACTIONS 423 [sym_kSpecialize]; ACTIONS 427 [sym_kAsm]; ACTIONS 429 [sym_kBegin];
   ACTIONS 431 [sym_kCase]; ACTIONS 433 [sym_kConst]; ACTIONS 2441 [sym_kEnd];
   ACTIONS 437 [sym_kFor]; ACTIONS 439 [sym_kFunction]; ACTIONS 441 [sym_kGoto];
   ACTIONS 443 [sym_kIf]; ACTIONS 445 [sym_kInherited]; ACTIONS 417 [sym_kNil];
   ACTIONS 415 [sym_kNot]; ACTIONS 439 [sym_kProcedure]; ACTIONS 447 [sym_kRaise];
   ACTIONS 449 [sym_kRepeat]; ACTIONS 451 [sym_kString]; ACTIONS 453 [sym_kTry];
   ACTIONS 455 [sym_kVar]; ACTIONS 457 [sym_kWhile]; ACTIONS 459 [sym_kWith]].

(** State 573. *)
Definition ts_parse_table_573 : parse_row :=
  [STATE 6213 [sym_if]; STATE 6327 [sym_ifElse; sym_while; sym_repeat; sym_for; sym_foreach;
   sym_try; sym_case; sym_block; sym_asm; sym_with; sym_raise; sym_statement; sym_goto;
   sym__statement]; STATE 15944 [sym_ifTr; sym_ifElseTr; sym_whileTr; sym_repeatTr; sym_forTr;
   sym_foreachTr; sym_tryTr; sym_caseTr]; STATE 14251 [sym_blockTr]; STATE 15944 [sym_asmTr;
   sym_withTr; sym_raiseTr; sym_statementTr; sym_gotoTr; sym__statementTr];
   STATE 13915 [sym_assignment]; STATE 11785 [sym_varAssignDef]; STATE 13915 [sym_varDef;
   sym_constDef]; STATE 6166 [sym_label]; STATE 15944 [sym__statementsTr]; STATE 8019 [sym__expr;
   sym_exprConditional]; STATE 7478 [sym__ref; sym_lambda; sym_inherited; sym_exprDot;
   sym_exprDeref; sym_exprAs; sym_exprTpl; sym_exprSubscript; sym_exprCall];
   STATE 8019 [sym_exprBinary; sym_exprUnary]; STATE 7478 [sym_exprParens; sym_exprBrackets;
   sym__literal; sym_literalString]; STATE 6664 [sym__literalString; sym_literalChar];
   STATE 7478 [sym_literalNumber]; STATE 7742 [sym__literalInt; sym__literalFloat];
   STATE 1380 [sym__ppIf]; STATE 6327 [sym__ppStatementBlock];
   STATE 11840 [aux_sym_labeledStatement_repeat1]; STATE 863 [aux_sym__statementsTr_repeat1];
   STATE 6664 [aux_sym_literalString_repeat1]; ACTIONS 397 [anon_sym_SEMI];
   ACTIONS 399 [anon_sym_LBRACK]; ACTIONS 401 [anon_sym_LPAREN];
   ACTIONS 403 [aux_sym__literalString_token1]; ACTIONS 405 [anon_sym_POUND];
   ACTIONS 407 [aux_sym__literalInt_token1]; ACTIONS 409 [aux_sym__literalInt_token2;
   aux_sym__literalInt_token3]; ACTIONS 407 [aux_sym__literalFloat_token1];
   ACTIONS 411 [aux_sym_ppUsesBlock_token1]; ACTIONS 413 [sym_kAdd; sym_kSub];
   ACTIONS 415 [sym_kAt]; ACTIONS 417 [sym_kTrue; sym_kFalse]; ACTIONS 419 [sym_labelNumber];
   ACTIONS 3 [sym__space]; ACTIONS 5 [sym_ppDirective]; ACTIONS 3 [sym_comment];
   ACTIONS 417 [sym_ppFragmentExpr]; ACTIONS 397 [sym_ppFragmentStmt];
   ACTIONS 403 [sym__literalStringMultiline]; ACTIONS 421 [sym_identifier];
   ACTIONS 423 [sym_kSpecialize]; ACTIONS 427 [sym_kAsm]; ACTIONS 429 [sym_kBegin];
   ACTIONS 431 [sym_kCase]; ACTIONS 433 [sym_kConst]; ACTIONS 3492 [sym_kEnd];
   ACTIONS 437 [sym_kFor]; ACTIONS 439 [sym_kFunction]; ACTIONS 441 [sym_kGoto];
   ACTIONS 443 [sym_kIf]; ACTIONS 445 [sym_kInherited]; ACTIONS 417 [sym_kNil];
   ACTIONS 415 [sym_kNot]; ACTIONS 439 [sym_kProcedure]; ACTIONS 447 [sym_kRaise];
   ACTIONS 449 [sym_kRepeat]; ACTIONS 451 [sym_kString]; ACTIONS 453 [sym_kTry];
   ACTIONS 455 [sym_kVar]; ACTIONS 457 [sym_kWhile]; ACTIONS 459 [sym_kWith]].

(** State 574. *)
Definition ts_parse_table_574 : parse_row :=
  [STATE 6213 [sym_if]; STATE 6327 [sym_ifElse; sym_while; sym_repeat; sym_for; sym_foreach;
   sym_try; sym_case; sym_block; sym_asm; sym_with; sym_raise; sym_statement; sym_goto;
   sym__statement]; STATE 14142 [sym_ifTr; sym_ifElseTr; sym_whileTr; sym_repeatTr; sym_forTr;
   sym_foreachTr; sym_tryTr; sym_caseTr]; STATE 14251 [sym_blockTr]; STATE 14142 [sym_asmTr;
   sym_withTr; sym_raiseTr; sym_statementTr; sym_gotoTr; sym__statementTr];
   STATE 13915 [sym_assignment]; STATE 11785 [sym_varAssignDef]; STATE 13915 [sym_varDef;
   sym_constDef]; STATE 6166 [sym_label]; STATE 14142 [sym__statementsTr]; STATE 8019 [sym__expr;
   sym_exprConditional]; STATE 7478 [sym__ref; sym_lambda; sym_inherited; sym_exprDot;
   sym_exprDeref; sym_exprAs; sym_exprTpl; sym_exprSubscript; sym_exprCall];
   STATE 8019 [sym_exprBinary; sym_exprUnary]; STATE 7478 [sym_exprParens; sym_exprBrackets;
   sym__literal; sym_literalString]; STATE 6664 [sym__literalString; sym_literalChar];
   STATE 7478 [sym_literalNumber]; STATE 7742 [sym__literalInt; sym__literalFloat];
   STATE 1380 [sym__ppIf]; STATE 6327 [sym__ppStatementBlock];
   STATE 11840 [aux_sym_labeledStatement_repeat1]; STATE 863 [aux_sym__statementsTr_repeat1];
   STATE 6664 [aux_sym_literalString_repeat1]; ACTIONS 397 [anon_sym_SEMI];
   ACTIONS 399 [anon_sym_LBRACK]; ACTIONS 401 [anon_sym_LPAREN];
   ACTIONS 403 [aux_sym__literalString_token1]; ACTIONS 405 [anon_sym_POUND];
   ACTIONS 407 [aux_sym__literalInt_token1]; ACTIONS 409 [aux_sym__literalInt_token2;
   aux_sym__literalInt_token3]; ACTIONS 407 [aux_sym__literalFloat_token1];
   ACTIONS 411 [aux_sym_ppUsesBlock_token1]; ACTIONS 413 [sym_kAdd; sym_kSub];
   ACTIONS 415 [sym_kAt]; ACTIONS 417 [sym_kTrue; sym_kFalse]; ACTIONS 419 [sym_labelNumber];
   ACTIONS 3 [sym__space]; ACTIONS 5 [sym_ppDirective]; ACTIONS 3 [sym_comment];
   ACTIONS 417 [sym_ppFragmentExpr]; ACTIONS 397 [sym_ppFragmentStmt];
   ACTIONS 403 [sym__literalStringMultiline]; ACTIONS 421 [sym_identifier];
   ACTIONS 423 [sym_kSpecialize]; ACTIONS 427 [sym_kAsm]; ACTIONS 429 [sym_kBegin];
   ACTIONS 431 [sym_kCase]; ACTIONS 433 [sym_kConst]; ACTIONS 3494 [sym_kEnd];
   ACTIONS 437 [sym_kFor]; ACTIONS 439 [sym_kFunction]; ACTIONS 441 [sym_kGoto];
   ACTIONS 443 [sym_kIf]; ACTIONS 445 [sym_kInherited]; ACTIONS 417 [sym_kNil];
   ACTIONS 415 [sym_kNot]; ACTIONS 439 [sym_kProcedure]; ACTIONS 447 [sym_kRaise];
   ACTIONS 449 [sym_kRepeat]; ACTIONS 451 [sym_kString]; ACTIONS 453 [sym_kTry];
   ACTIONS 455 [sym_kVar]; ACTIONS 457 [sym_kWhile]; ACTIONS 459 [sym_kWith]].

(** State 575. *)
Definition ts_parse_table_575 : parse_row :=
  [STATE 6213 [sym_if]; STATE 6327 [sym_ifElse; sym_while; sym_repeat; sym_for; sym_foreach;
   sym_try; sym_case; sym_block; sym_asm; sym_with; sym_raise; sym_statement; sym_goto;
   sym__statement]; STATE 14156 [sym_ifTr; sym_ifElseTr; sym_whileTr; sym_repeatTr; sym_forTr;
   sym_foreachTr; sym_tryTr; sym_caseTr]; STATE 14251 [sym_blockTr]; STATE 14156 [sym_asmTr;
   sym_withTr; sym_raiseTr; sym_statementTr; sym_gotoTr; sym__statementTr];
   STATE 13915 [sym_assignment]; STATE 11785 [sym_varAssignDef]; STATE 13915 [sym_varDef;
   sym_constDef]; STATE 6166 [sym_label]; STATE 14156 [sym__statementsTr]; STATE 8019 [sym__expr;
   sym_exprConditional]; STATE 7478 [sym__ref; sym_lambda; sym_inherited; sym_exprDot;
   sym_exprDeref; sym_exprAs; sym_exprTpl; sym_exprSubscript; sym_exprCall];
   STATE 8019 [sym_exprBinary; sym_exprUnary]; STATE 7478 [sym_exprParens; sym_exprBrackets;
   sym__literal; sym_literalString]; STATE 6664 [sym__literalString; sym_literalChar];
   STATE 7478 [sym_literalNumber]; STATE 7742 [sym__literalInt; sym__literalFloat];
   STATE 1380 [sym__ppIf]; STATE 6327 [sym__ppStatementBlock];
   STATE 11840 [aux_sym_labeledStatement_repeat1]; STATE 863 [aux_sym__statementsTr_repeat1];
   STATE 6664 [aux_sym_literalString_repeat1]; ACTIONS 397 [anon_sym_SEMI];
   ACTIONS 399 [anon_sym_LBRACK]; ACTIONS 401 [anon_sym_LPAREN];
   ACTIONS 403 [aux_sym__literalString_token1]; ACTIONS 405 [anon_sym_POUND];
   ACTIONS 407 [aux_sym__literalInt_token1]; ACTIONS 409 [aux_sym__literalInt_token2;
   aux_sym__literalInt_token3]; ACTIONS 407 [aux_sym__literalFloat_token1];
   ACTIONS 411 [aux_sym_ppUsesBlock_token1]; ACTIONS 413 [sym_kAdd; sym_kSub];
   ACTIONS 415 [sym_kAt]; ACTIONS 417 [sym_kTrue; sym_kFalse]; ACTIONS 419 [sym_labelNumber];
   ACTIONS 3 [sym__space]; ACTIONS 5 [sym_ppDirective]; ACTIONS 3 [sym_comment];
   ACTIONS 417 [sym_ppFragmentExpr]; ACTIONS 397 [sym_ppFragmentStmt];
   ACTIONS 403 [sym__literalStringMultiline]; ACTIONS 421 [sym_identifier];
   ACTIONS 423 [sym_kSpecialize]; ACTIONS 427 [sym_kAsm]; ACTIONS 429 [sym_kBegin];
   ACTIONS 431 [sym_kCase]; ACTIONS 433 [sym_kConst]; ACTIONS 3496 [sym_kEnd];
   ACTIONS 437 [sym_kFor]; ACTIONS 439 [sym_kFunction]; ACTIONS 441 [sym_kGoto];
   ACTIONS 443 [sym_kIf]; ACTIONS 445 [sym_kInherited]; ACTIONS 417 [sym_kNil];
   ACTIONS 415 [sym_kNot]; ACTIONS 439 [sym_kProcedure]; ACTIONS 447 [sym_kRaise];
   ACTIONS 449 [sym_kRepeat]; ACTIONS 451 [sym_kString]; ACTIONS 453 [sym_kTry];
   ACTIONS 455 [sym_kVar]; ACTIONS 457 [sym_kWhile]; ACTIONS 459 [sym_kWith]].

(** State 576. *)
Definition ts_parse_table_576 : parse_row :=
  [STATE 6213 [sym_if]; STATE 6327 [sym_ifElse; sym_while; sym_repeat; sym_for; sym_foreach;
   sym_try; sym_case; sym_block; sym_asm; sym_with; sym_raise; sym_statement; sym_goto;
   sym__statement]; STATE 14162 [sym_ifTr; sym_ifElseTr; sym_whileTr; sym_repeatTr; sym_forTr;
   sym_foreachTr; sym_tryTr; sym_caseTr]; STATE 14251 [sym_blockTr]; STATE 14162 [sym_asmTr;
   sym_withTr; sym_raiseTr; sym_statementTr; sym_gotoTr; sym__statementTr];
   STATE 13915 [sym_assignment]; STATE 11785 [sym_varAssignDef]; STATE 13915 [sym_varDef;
   sym_constDef]; STATE 6166 [sym_label]; STATE 14162 [sym__statementsTr]; STATE 8019 [sym__expr;
   sym_exprConditional]; STATE 7478 [sym__ref; sym_lambda; sym_inherited; sym_exprDot;
   sym_exprDeref; sym_exprAs; sym_exprTpl; sym_exprSubscript; sym_exprCall];
   STATE 8019 [sym_exprBinary; sym_exprUnary]; STATE 7478 [sym_exprParens; sym_exprBrackets;
   sym__literal; sym_literalString]; STATE 6664 [sym__literalString; sym_literalChar];
   STATE 7478 [sym_literalNumber]; STATE 7742 [sym__literalInt; sym__literalFloat];
   STATE 1380 [sym__ppIf]; STATE 6327 [sym__ppStatementBlock];
   STATE 11840 [aux_sym_labeledStatement_repeat1]; STATE 863 [aux_sym__statementsTr_repeat1];
   STATE 6664 [aux_sym_literalString_repeat1]; ACTIONS 397 [anon_sym_SEMI];
   ACTIONS 399 [anon_sym_LBRACK]; ACTIONS 401 [anon_sym_LPAREN];
   ACTIONS 403 [aux_sym__literalString_token1]; ACTIONS 405 [anon_sym_POUND];
   ACTIONS 407 [aux_sym__literalInt_token1]; ACTIONS 409 [aux_sym__literalInt_token2;
   aux_sym__literalInt_token3]; ACTIONS 407 [aux_sym__literalFloat_token1];
   ACTIONS 411 [aux_sym_ppUsesBlock_token1]; ACTIONS 413 [sym_kAdd; sym_kSub];
   ACTIONS 415 [sym_kAt]; ACTIONS 417 [sym_kTrue; sym_kFalse]; ACTIONS 419 [sym_labelNumber];
   ACTIONS 3 [sym__space]; ACTIONS 5 [sym_ppDirective]; ACTIONS 3 [sym_comment];
   ACTIONS 417 [sym_ppFragmentExpr]; ACTIONS 397 [sym_ppFragmentStmt];
   ACTIONS 403 [sym__literalStringMultiline]; ACTIONS 421 [sym_identifier];
   ACTIONS 423 [sym_kSpecialize]; ACTIONS 427 [sym_kAsm]; ACTIONS 429 [sym_kBegin];
   ACTIONS 431 [sym_kCase]; ACTIONS 433 [sym_kConst]; ACTIONS 3498 [sym_kEnd];
   ACTIONS 437 [sym_kFor]; ACTIONS 439 [sym_kFunction]; ACTIONS 441 [sym_kGoto];
   ACTIONS 443 [sym_kIf]; ACTIONS 445 [sym_kInherited]; ACTIONS 417 [sym_kNil];
   ACTIONS 415 [sym_kNot]; ACTIONS 439 [sym_kProcedure]; ACTIONS 447 [sym_kRaise];
   ACTIONS 449 [sym_kRepeat]; ACTIONS 451 [sym_kString]; ACTIONS 453 [sym_kTry];
   ACTIONS 455 [sym_kVar]; ACTIONS 457 [sym_kWhile]; ACTIONS 459 [sym_kWith]].

(** State 577. *)
Definition ts_parse_table_577 : parse_row :=
  [STATE 1085 [sym__procAttribute]; STATE 15235 [sym_procAttribute];
   STATE 690 [sym_procExternal]; STATE 906 [aux_sym_declProcFwd_repeat1];
   STATE 690 [aux_sym_declVar_repeat2]; ACTIONS 3500 [anon_sym_SEMI; anon_sym_COMMA];
   ACTIONS 3504 [anon_sym_LBRACK]; ACTIONS 3509 [anon_sym_LPAREN];
   ACTIONS 3500 [aux_sym__literalString_token1; anon_sym_POUND];
   ACTIONS 3509 [aux_sym__literalInt_token1]; ACTIONS 3500 [aux_sym__literalInt_token2;
   aux_sym__literalInt_token3]; ACTIONS 3509 [aux_sym__literalFloat_token1];
   ACTIONS 3500 [aux_sym_ppUsesBlock_token1; aux_sym_ppUsesBlock_token2;
   aux_sym_ppUsesBlock_token3]; ACTIONS 3509 [sym_kAdd; sym_kSub]; ACTIONS 3500 [sym_kAt;
   sym_kTrue; sym_kFalse]; ACTIONS 3 [sym__space]; ACTIONS 5 [sym_ppDirective];
   ACTIONS 3 [sym_comment]; ACTIONS 3500 [sym_ppFragmentExpr; sym__literalStringMultiline;
   sym_identifier]; ACTIONS 3513 [sym_kDefault; sym_kNodefault]; ACTIONS 3518 [sym_kDispId];
   ACTIONS 3500 [sym_kGeneric; sym_kSpecialize; sym_kOperator]; ACTIONS 3523 [sym_kPublic];
   ACTIONS 3513 [sym_kStatic; sym_kVirtual; sym_kAbstract; sym_kDynamic; sym_kOverride;
   sym_kOverload; sym_kReintroduce; sym_kStdcall; sym_kCdecl; sym_kCppdecl; sym_kPascal;
   sym_kRegister; sym_kMwpascal]; ACTIONS 3438 [sym_kExternal]; ACTIONS 3528 [sym_kMessage];
   ACTIONS 3533 [sym_kDeprecated]; ACTIONS 3513 [sym_kExperimental; sym_kPlatform;
   sym_kUnimplemented; sym_kCvar]; ACTIONS 3538 [sym_kExport]; ACTIONS 3513 [sym_kFar; sym_kNear;
   sym_kSafecall; sym_kAssembler; sym_kNostackframe; sym_kInterrupt; sym_kNoreturn; sym_kIocheck;
   sym_kLocal; sym_kHardfloat; sym_kSoftfloat; sym_kMs_abi_default; sym_kMs_abi_cdecl;
   sym_kSaveregisters; sym_kSysv_abi_default; sym_kSysv_abi_cdecl; sym_kVectorcall; sym_kVarargs;
   sym_kWinapi]; ACTIONS 3543 [sym_kAlias]; ACTIONS 3500 [sym_kAsm; sym_kBegin; sym_kCase;
   sym_kClass; sym_kConst; sym_kConstructor; sym_kDestructor; sym_kExports; sym_kFor;
   sym_kFunction; sym_kGoto; sym_kIf; sym_kInherited]; ACTIONS 1016 [sym_kInline];
   ACTIONS 3500 [sym_kLabel; sym_kNil; sym_kNot; sym_kProcedure; sym_kProperty; sym_kRaise;
   sym_kRepeat; sym_kResourcestring; sym_kString; sym_kThreadvar; sym_kTry; sym_kType; sym_kUses;
   sym_kVar; sym_kWhile; sym_kWith]].

(** State 578. *)
Definition ts_parse_table_578 : parse_row :=
  [STATE 5602 [sym_if]; STATE 5590 [sym_ifElse; sym_while; sym_repeat; sym_for; sym_foreach;
   sym_try; sym_case; sym_block; sym_asm; sym_with; sym_raise; sym_statement; sym_goto;
   sym_labeledStatement; sym__statement]; STATE 11601 [sym_ifTr; sym_ifElseTr; sym_whileTr;
   sym_repeatTr; sym_forTr; sym_foreachTr; sym_tryTr; sym_caseTr]; STATE 11564 [sym_blockTr];
   STATE 11601 [sym_asmTr; sym_withTr; sym_raiseTr; sym_statementTr; sym_gotoTr;
   sym_labeledStatementTr; sym__statementTr]; STATE 11516 [sym_assignment];
   STATE 11931 [sym_varAssignDef]; STATE 11516 [sym_varDef; sym_constDef]; STATE 758 [sym_label];
   STATE 7209 [sym__expr; sym_exprConditional]; STATE 6884 [sym__ref; sym_lambda; sym_inherited;
   sym_exprDot; sym_exprDeref; sym_exprAs; sym_exprTpl; sym_exprSubscript; sym_exprCall];
   STATE 7209 [sym_exprBinary; sym_exprUnary]; STATE 6884 [sym_exprParens; sym_exprBrackets;
   sym__literal; sym_literalString]; STATE 5959 [sym__literalString; sym_literalChar];
   STATE 6884 [sym_literalNumber]; STATE 6992 [sym__literalInt; sym__literalFloat];
   STATE 5959 [aux_sym_literalString_repeat1]; ACTIONS 3396 [anon_sym_SEMI];
   ACTIONS 3196 [anon_sym_LBRACK]; ACTIONS 3198 [anon_sym_LPAREN];
   ACTIONS 3200 [aux_sym__literalString_token1]; ACTIONS 3202 [anon_sym_POUND];
   ACTIONS 3204 [aux_sym__literalInt_token1]; ACTIONS 3206 [aux_sym__literalInt_token2;
   aux_sym__literalInt_token3]; ACTIONS 3204 [aux_sym__literalFloat_token1];
   ACTIONS 3208 [sym_kAdd; sym_kSub]; ACTIONS 3210 [sym_kAt]; ACTIONS 3212 [sym_kTrue;
   sym_kFalse]; ACTIONS 3214 [sym_labelNumber]; ACTIONS 3 [sym__space];
   ACTIONS 5 [sym_ppDirective]; ACTIONS 3 [sym_comment]; ACTIONS 3212 [sym_ppFragmentExpr];
   ACTIONS 3200 [sym__literalStringMultiline]; ACTIONS 3216 [sym_identifier];
   ACTIONS 3218 [sym_kSpecialize]; ACTIONS 3308 [sym_kAsm]; ACTIONS 3310 [sym_kBegin];
   ACTIONS 3312 [sym_kCase]; ACTIONS 3226 [sym_kConst]; ACTIONS 3548 [sym_kElse];
   ACTIONS 3230 [sym_kEnd; sym_kFinalization]; ACTIONS 3314 [sym_kFor];
   ACTIONS 3234 [sym_kFunction]; ACTIONS 3316 [sym_kGoto]; ACTIONS 3318 [sym_kIf];
   ACTIONS 3230 [sym_kImplementation]; ACTIONS 3240 [sym_kInherited];
   ACTIONS 3230 [sym_kInitialization; sym_kInterface]; ACTIONS 3212 [sym_kNil];
   ACTIONS 3210 [sym_kNot]; ACTIONS 3234 [sym_kProcedure]; ACTIONS 3320 [sym_kRaise];
   ACTIONS 3322 [sym_kRepeat]; ACTIONS 3246 [sym_kString]; ACTIONS 3324 [sym_kTry];
   ACTIONS 3250 [sym_kVar]; ACTIONS 3326 [sym_kWhile]; ACTIONS 3328 [sym_kWith]].

(** State 579. *)
Definition ts_parse_table_579 : parse_row :=
  [STATE 6213 [sym_if]; STATE 6327 [sym_ifElse; sym_while; sym_repeat; sym_for; sym_foreach;
   sym_try; sym_case; sym_block; sym_asm; sym_with; sym_raise; sym_statement; sym_goto;
   sym__statement]; STATE 14134 [sym_ifTr; sym_ifElseTr; sym_whileTr; sym_repeatTr; sym_forTr;
   sym_foreachTr; sym_tryTr; sym_caseTr]; STATE 14251 [sym_blockTr]; STATE 14134 [sym_asmTr;
   sym_withTr; sym_raiseTr; sym_statementTr; sym_gotoTr; sym__statementTr];
   STATE 13915 [sym_assignment]; STATE 11785 [sym_varAssignDef]; STATE 13915 [sym_varDef;
   sym_constDef]; STATE 6166 [sym_label]; STATE 14134 [sym__statementsTr]; STATE 8019 [sym__expr;
   sym_exprConditional]; STATE 7478 [sym__ref; sym_lambda; sym_inherited; sym_exprDot;
   sym_exprDeref; sym_exprAs; sym_exprTpl; sym_exprSubscript; sym_exprCall];
   STATE 8019 [sym_exprBinary; sym_exprUnary]; STATE 7478 [sym_exprParens; sym_exprBrackets;
   sym__literal; sym_literalString]; STATE 6664 [sym__literalString; sym_literalChar];
   STATE 7478 [sym_literalNumber]; STATE 7742 [sym__literalInt; sym__literalFloat];
   STATE 1380 [sym__ppIf]; STATE 6327 [sym__ppStatementBlock];
   STATE 11840 [aux_sym_labeledStatement_repeat1]; STATE 863 [aux_sym__statementsTr_repeat1];
   STATE 6664 [aux_sym_literalString_repeat1]; ACTIONS 397 [anon_sym_SEMI];
   ACTIONS 399 [anon_sym_LBRACK]; ACTIONS 401 [anon_sym_LPAREN];
   ACTIONS 403 [aux_sym__literalString_token1]; ACTIONS 405 [anon_sym_POUND];
   ACTIONS 407 [aux_sym__literalInt_token1]; ACTIONS 409 [aux_sym__literalInt_token2;
   aux_sym__literalInt_token3]; ACTIONS 407 [aux_sym__literalFloat_token1];
   ACTIONS 411 [aux_sym_ppUsesBlock_token1]; ACTIONS 413 [sym_kAdd; sym_kSub];
   ACTIONS 415 [sym_kAt]; ACTIONS 417 [sym_kTrue; sym_kFalse]; ACTIONS 419 [sym_labelNumber];
   ACTIONS 3 [sym__space]; ACTIONS 5 [sym_ppDirective]; ACTIONS 3 [sym_comment];
   ACTIONS 417 [sym_ppFragmentExpr]; ACTIONS 397 [sym_ppFragmentStmt];
   ACTIONS 403 [sym__literalStringMultiline]; ACTIONS 421 [sym_identifier];
   ACTIONS 423 [sym_kSpecialize]; ACTIONS 427 [sym_kAsm]; ACTIONS 429 [sym_kBegin];
   ACTIONS 431 [sym_kCase]; ACTIONS 433 [sym_kConst]; ACTIONS 3550 [sym_kEnd];
   ACTIONS 437 [sym_kFor]; ACTIONS 439 [sym_kFunction]; ACTIONS 441 [sym_kGoto];
   ACTIONS 443 [sym_kIf]; ACTIONS 445 [sym_kInherited]; ACTIONS 417 [sym_kNil];
   ACTIONS 415 [sym_kNot]; ACTIONS 439 [sym_kProcedure]; ACTIONS 447 [sym_kRaise];
   ACTIONS 449 [sym_kRepeat]; ACTIONS 451 [sym_kString]; ACTIONS 453 [sym_kTry];
   ACTIONS 455 [sym_kVar]; ACTIONS 457 [sym_kWhile]; ACTIONS 459 [sym_kWith]].

(** State 580. *)
Definition ts_parse_table_580 : parse_row :=
  [STATE 6213 [sym_if]; STATE 6327 [sym_ifElse; sym_while; sym_repeat; sym_for; sym_foreach;
   sym_try; sym_case; sym_block; sym_asm; sym_with; sym_raise; sym_statement; sym_goto;
   sym__statement]; STATE 14250 [sym_ifTr; sym_ifElseTr; sym_whileTr; sym_repeatTr; sym_forTr;
   sym_foreachTr; sym_tryTr; sym_caseTr]; STATE 14251 [sym_blockTr]; STATE 14250 [sym_asmTr;
   sym_withTr; sym_raiseTr; sym_statementTr; sym_gotoTr; sym__statementTr];
   STATE 13915 [sym_assignment]; STATE 11785 [sym_varAssignDef]; STATE 13915 [sym_varDef;
   sym_constDef]; STATE 6166 [sym_label]; STATE 14250 [sym__statementsTr]; STATE 8019 [sym__expr;
   sym_exprConditional]; STATE 7478 [sym__ref; sym_lambda; sym_inherited; sym_exprDot;
   sym_exprDeref; sym_exprAs; sym_exprTpl; sym_exprSubscript; sym_exprCall];
   STATE 8019 [sym_exprBinary; sym_exprUnary]; STATE 7478 [sym_exprParens; sym_exprBrackets;
   sym__literal; sym_literalString]; STATE 6664 [sym__literalString; sym_literalChar];
   STATE 7478 [sym_literalNumber]; STATE 7742 [sym__literalInt; sym__literalFloat];
   STATE 1380 [sym__ppIf]; STATE 6327 [sym__ppStatementBlock];
   STATE 11840 [aux_sym_labeledStatement_repeat1]; STATE 863 [aux_sym__statementsTr_repeat1];
   STATE 6664 [aux_sym_literalString_repeat1]; ACTIONS 397 [anon_sym_SEMI];
   ACTIONS 399 [anon_sym_LBRACK]; ACTIONS 401 [anon_sym_LPAREN];
   ACTIONS 403 [aux_sym__literalString_token1]; ACTIONS 405 [anon_sym_POUND];
   ACTIONS 407 [aux_sym__literalInt_token1]; ACTIONS 409 [aux_sym__literalInt_token2;
   aux_sym__literalInt_token3]; ACTIONS 407 [aux_sym__literalFloat_token1];
   ACTIONS 411 [aux_sym_ppUsesBlock_token1]; ACTIONS 413 [sym_kAdd; sym_kSub];
   ACTIONS 415 [sym_kAt]; ACTIONS 417 [sym_kTrue; sym_kFalse]; ACTIONS 419 [sym_labelNumber];
   ACTIONS 3 [sym__space]; ACTIONS 5 [sym_ppDirective]; ACTIONS 3 [sym_comment];
   ACTIONS 417 [sym_ppFragmentExpr]; ACTIONS 397 [sym_ppFragmentStmt];
   ACTIONS 403 [sym__literalStringMultiline]; ACTIONS 421 [sym_identifier];
   ACTIONS 423 [sym_kSpecialize]; ACTIONS 427 [sym_kAsm]; ACTIONS 429 [sym_kBegin];
   ACTIONS 431 [sym_kCase]; ACTIONS 433 [sym_kConst]; ACTIONS 2453 [sym_kEnd];
   ACTIONS 437 [sym_kFor]; ACTIONS 439 [sym_kFunction]; ACTIONS 441 [sym_kGoto];
   ACTIONS 443 [sym_kIf]; ACTIONS 445 [sym_kInherited]; ACTIONS 417 [sym_kNil];
   ACTIONS 415 [sym_kNot]; ACTIONS 439 [sym_kProcedure]; ACTIONS 447 [sym_kRaise];
   ACTIONS 449 [sym_kRepeat]; ACTIONS 451 [sym_kString]; ACTIONS 453 [sym_kTry];
   ACTIONS 455 [sym_kVar]; ACTIONS 457 [sym_kWhile]; ACTIONS 459 [sym_kWith]].

(** State 581. *)
Definition ts_parse_table_581 : parse_row :=
  [STATE 6213 [sym_if]; STATE 6327 [sym_ifElse; sym_while; sym_repeat; sym_for; sym_foreach;
   sym_try; sym_case; sym_block; sym_asm; sym_with; sym_raise; sym_statement; sym_goto;
   sym__statement]; STATE 15862 [sym_ifTr; sym_ifElseTr; sym_whileTr; sym_repeatTr; sym_forTr;
   sym_foreachTr; sym_tryTr; sym_caseTr]; STATE 14251 [sym_blockTr]; STATE 15862 [sym_asmTr;
   sym_withTr; sym_raiseTr; sym_statementTr; sym_gotoTr; sym__statementTr];
   STATE 13915 [sym_assignment]; STATE 11785 [sym_varAssignDef]; STATE 13915 [sym_varDef;
   sym_constDef]; STATE 6166 [sym_label]; STATE 15862 [sym__statementsTr]; STATE 8019 [sym__expr;
   sym_exprConditional]; STATE 7478 [sym__ref; sym_lambda; sym_inherited; sym_exprDot;
   sym_exprDeref; sym_exprAs; sym_exprTpl; sym_exprSubscript; sym_exprCall];
   STATE 8019 [sym_exprBinary; sym_exprUnary]; STATE 7478 [sym_exprParens; sym_exprBrackets;
   sym__literal; sym_literalString]; STATE 6664 [sym__literalString; sym_literalChar];
   STATE 7478 [sym_literalNumber]; STATE 7742 [sym__literalInt; sym__literalFloat];
   STATE 1380 [sym__ppIf]; STATE 6327 [sym__ppStatementBlock];
   STATE 11840 [aux_sym_labeledStatement_repeat1]; STATE 863 [aux_sym__statementsTr_repeat1];
   STATE 6664 [aux_sym_literalString_repeat1]; ACTIONS 397 [anon_sym_SEMI];
   ACTIONS 399 [anon_sym_LBRACK]; ACTIONS 401 [anon_sym_LPAREN];
   ACTIONS 403 [aux_sym__literalString_token1]; ACTIONS 405 [anon_sym_POUND];
   ACTIONS 407 [aux_sym__literalInt_token1]; ACTIONS 409 [aux_sym__literalInt_token2;
   aux_sym__literalInt_token3]; ACTIONS 407 [aux_sym__literalFloat_token1];
   ACTIONS 411 [aux_sym_ppUsesBlock_token1]; ACTIONS 413 [sym_kAdd; sym_kSub];
   ACTIONS 415 [sym_kAt]; ACTIONS 417 [sym_kTrue; sym_kFalse]; ACTIONS 419 [sym_labelNumber];
   ACTIONS 3 [sym__space]; ACTIONS 5 [sym_ppDirective]; ACTIONS 3 [sym_comment];
   ACTIONS 417 [sym_ppFragmentExpr]; ACTIONS 397 [sym_ppFragmentStmt];
   ACTIONS 403 [sym__literalStringMultiline]; ACTIONS 421 [sym_identifier];
   ACTIONS 423 [sym_kSpecialize]; ACTIONS 427 [sym_kAsm]; ACTIONS 429 [sym_kBegin];
   ACTIONS 431 [sym_kCase]; ACTIONS 433 [sym_kConst]; ACTIONS 3552 [sym_kEnd];
   ACTIONS 437 [sym_kFor]; ACTIONS 439 [sym_kFunction]; ACTIONS 441 [sym_kGoto];
   ACTIONS 443 [sym_kIf]; ACTIONS 445 [sym_kInherited]; ACTIONS 417 [sym_kNil];
   ACTIONS 415 [sym_kNot]; ACTIONS 439 [sym_kProcedure]; ACTIONS 447 [sym_kRaise];
   ACTIONS 449 [sym_kRepeat]; ACTIONS 451 [sym_kString]; ACTIONS 453 [sym_kTry];
   ACTIONS 455 [sym_kVar]; ACTIONS 457 [sym_kWhile]; ACTIONS 459 [sym_kWith]].

(** State 582. *)
Definition ts_parse_table_582 : parse_row :=
  [STATE 6213 [sym_if]; STATE 6327 [sym_ifElse; sym_while; sym_repeat; sym_for; sym_foreach;
   sym_try; sym_case; sym_block; sym_asm; sym_with; sym_raise; sym_statement; sym_goto;
   sym__statement]; STATE 14253 [sym_ifTr; sym_ifElseTr; sym_whileTr; sym_repeatTr; sym_forTr;
   sym_foreachTr; sym_tryTr; sym_caseTr]; STATE 14251 [sym_blockTr]; STATE 14253 [sym_asmTr;
   sym_withTr; sym_raiseTr; sym_statementTr; sym_gotoTr; sym__statementTr];
   STATE 13915 [sym_assignment]; STATE 11785 [sym_varAssignDef]; STATE 13915 [sym_varDef;
   sym_constDef]; STATE 6166 [sym_label]; STATE 14253 [sym__statementsTr]; STATE 8019 [sym__expr;
   sym_exprConditional]; STATE 7478 [sym__ref; sym_lambda; sym_inherited; sym_exprDot;
   sym_exprDeref; sym_exprAs; sym_exprTpl; sym_exprSubscript; sym_exprCall];
   STATE 8019 [sym_exprBinary; sym_exprUnary]; STATE 7478 [sym_exprParens; sym_exprBrackets;
   sym__literal; sym_literalString]; STATE 6664 [sym__literalString; sym_literalChar];
   STATE 7478 [sym_literalNumber]; STATE 7742 [sym__literalInt; sym__literalFloat];
   STATE 1380 [sym__ppIf]; STATE 6327 [sym__ppStatementBlock];
   STATE 11840 [aux_sym_labeledStatement_repeat1]; STATE 863 [aux_sym__statementsTr_repeat1];
   STATE 6664 [aux_sym_literalString_repeat1]; ACTIONS 397 [anon_sym_SEMI];
   ACTIONS 399 [anon_sym_LBRACK]; ACTIONS 401 [anon_sym_LPAREN];
   ACTIONS 403 [aux_sym__literalString_token1]; ACTIONS 405 [anon_sym_POUND];
   ACTIONS 407 [aux_sym__literalInt_token1]; ACTIONS 409 [aux_sym__literalInt_token2;
   aux_sym__literalInt_token3]; ACTIONS 407 [aux_sym__literalFloat_token1];
   ACTIONS 411 [aux_sym_ppUsesBlock_token1]; ACTIONS 413 [sym_kAdd; sym_kSub];
   ACTIONS 415 [sym_kAt]; ACTIONS 417 [sym_kTrue; sym_kFalse]; ACTIONS 419 [sym_labelNumber];
   ACTIONS 3 [sym__space]; ACTIONS 5 [sym_ppDirective]; ACTIONS 3 [sym_comment];
   ACTIONS 417 [sym_ppFragmentExpr]; ACTIONS 397 [sym_ppFragmentStmt];
   ACTIONS 403 [sym__literalStringMultiline]; ACTIONS 421 [sym_identifier];
   ACTIONS 423 [sym_kSpecialize]; ACTIONS 427 [sym_kAsm]; ACTIONS 429 [sym_kBegin];
   ACTIONS 431 [sym_kCase]; ACTIONS 433 [sym_kConst]; ACTIONS 2457 [sym_kEnd];
   ACTIONS 437 [sym_kFor]; ACTIONS 439 [sym_kFunction]; ACTIONS 441 [sym_kGoto];
   ACTIONS 443 [sym_kIf]; ACTIONS 445 [sym_kInherited]; ACTIONS 417 [sym_kNil];
   ACTIONS 415 [sym_kNot]; ACTIONS 439 [sym_kProcedure]; ACTIONS 447 [sym_kRaise];
   ACTIONS 449 [sym_kRepeat]; ACTIONS 451 [sym_kString]; ACTIONS 453 [sym_kTry];
   ACTIONS 455 [sym_kVar]; ACTIONS 457 [sym_kWhile]; ACTIONS 459 [sym_kWith]].

(** State 583. *)
Definition ts_parse_table_583 : parse_row :=
  [STATE 6213 [sym_if]; STATE 6327 [sym_ifElse; sym_while; sym_repeat; sym_for; sym_foreach;
   sym_try; sym_case; sym_block; sym_asm; sym_with; sym_raise; sym_statement; sym_goto;
   sym__statement]; STATE 14183 [sym_ifTr; sym_ifElseTr; sym_whileTr; sym_repeatTr; sym_forTr;
   sym_foreachTr; sym_tryTr; sym_caseTr]; STATE 14251 [sym_blockTr]; STATE 14183 [sym_asmTr;
   sym_withTr; sym_raiseTr; sym_statementTr; sym_gotoTr; sym__statementTr];
   STATE 13915 [sym_assignment]; STATE 11785 [sym_varAssignDef]; STATE 13915 [sym_varDef;
   sym_constDef]; STATE 6166 [sym_label]; STATE 14183 [sym__statementsTr]; STATE 8019 [sym__expr;
   sym_exprConditional]; STATE 7478 [sym__ref; sym_lambda; sym_inherited; sym_exprDot;
   sym_exprDeref; sym_exprAs; sym_exprTpl; sym_exprSubscript; sym_exprCall];
   STATE 8019 [sym_exprBinary; sym_exprUnary]; STATE 7478 [sym_exprParens; sym_exprBrackets;
   sym__literal; sym_literalString]; STATE 6664 [sym__literalString; sym_literalChar];
   STATE 7478 [sym_literalNumber]; STATE 7742 [sym__literalInt; sym__literalFloat];
   STATE 1380 [sym__ppIf]; STATE 6327 [sym__ppStatementBlock];
   STATE 11840 [aux_sym_labeledStatement_repeat1]; STATE 863 [aux_sym__statementsTr_repeat1];
   STATE 6664 [aux_sym_literalString_repeat1]; ACTIONS 397 [anon_sym_SEMI];
   ACTIONS 399 [anon_sym_LBRACK]; ACTIONS 401 [anon_sym_LPAREN];
   ACTIONS 403 [aux_sym__literalString_token1]; ACTIONS 405 [anon_sym_POUND];
   ACTIONS 407 [aux_sym__literalInt_token1]; ACTIONS 409 [aux_sym__literalInt_token2;
   aux_sym__literalInt_token3]; ACTIONS 407 [aux_sym__literalFloat_token1];
   ACTIONS 411 [aux_sym_ppUsesBlock_token1]; ACTIONS 413 [sym_kAdd; sym_kSub];
   ACTIONS 415 [sym_kAt]; ACTIONS 417 [sym_kTrue; sym_kFalse]; ACTIONS 419 [sym_labelNumber];
   ACTIONS 3 [sym__space]; ACTIONS 5 [sym_ppDirective]; ACTIONS 3 [sym_comment];
   ACTIONS 417 [sym_ppFragmentExpr]; ACTIONS 397 [sym_ppFragmentStmt];
   ACTIONS 403 [sym__literalStringMultiline]; ACTIONS 421 [sym_identifier];
   ACTIONS 423 [sym_kSpecialize]; ACTIONS 427 [sym_kAsm]; ACTIONS 429 [sym_kBegin];
   ACTIONS 431 [sym_kCase]; ACTIONS 433 [sym_kConst]; ACTIONS 3554 [sym_kEnd];
   ACTIONS 437 [sym_kFor]; ACTIONS 439 [sym_kFunction]; ACTIONS 441 [sym_kGoto];
   ACTIONS 443 [sym_kIf]; ACTIONS 445 [sym_kInherited]; ACTIONS 417 [sym_kNil];
   ACTIONS 415 [sym_kNot]; ACTIONS 439 [sym_kProcedure]; ACTIONS 447 [sym_kRaise];
   ACTIONS 449 [sym_kRepeat]; ACTIONS 451 [sym_kString]; ACTIONS 453 [sym_kTry];
   ACTIONS 455 [sym_kVar]; ACTIONS 457 [sym_kWhile]; ACTIONS 459 [sym_kWith]].

(** State 584. *)
Definition ts_parse_table_584 : parse_row :=
  [STATE 6213 [sym_if]; STATE 6327 [sym_ifElse; sym_while; sym_repeat; sym_for; sym_foreach;
   sym_try; sym_case; sym_block; sym_asm; sym_with; sym_raise; sym_statement; sym_goto;
   sym__statement]; STATE 14256 [sym_ifTr; sym_ifElseTr; sym_whileTr; sym_repeatTr; sym_forTr;
   sym_foreachTr; sym_tryTr; sym_caseTr]; STATE 14251 [sym_blockTr]; STATE 14256 [sym_asmTr;
   sym_withTr; sym_raiseTr; sym_statementTr; sym_gotoTr; sym__statementTr];
   STATE 13915 [sym_assignment]; STATE 11785 [sym_varAssignDef]; STATE 13915 [sym_varDef;
   sym_constDef]; STATE 6166 [sym_label]; STATE 14256 [sym__statementsTr]; STATE 8019 [sym__expr;
   sym_exprConditional]; STATE 7478 [sym__ref; sym_lambda; sym_inherited; sym_exprDot;
   sym_exprDeref; sym_exprAs; sym_exprTpl; sym_exprSubscript; sym_exprCall];
   STATE 8019 [sym_exprBinary; sym_exprUnary]; STATE 7478 [sym_exprParens; sym_exprBrackets;
   sym__literal; sym_literalString]; STATE 6664 [sym__literalString; sym_literalChar];
   STATE 7478 [sym_literalNumber]; STATE 7742 [sym__literalInt; sym__literalFloat];
   STATE 1380 [sym__ppIf]; STATE 6327 [sym__ppStatementBlock];
   STATE 11840 [aux_sym_labeledStatement_repeat1]; STATE 863 [aux_sym__statementsTr_repeat1];
   STATE 6664 [aux_sym_literalString_repeat1]; ACTIONS 397 [anon_sym_SEMI];
   ACTIONS 399 [anon_sym_LBRACK]; ACTIONS 401 [anon_sym_LPAREN];
   ACTIONS 403 [aux_sym__literalString_token1]; ACTIONS 405 [anon_sym_POUND];
   ACTIONS 407 [aux_sym__literalInt_token1]; ACTIONS 409 [aux_sym__literalInt_token2;
   aux_sym__literalInt_token3]; ACTIONS 407 [aux_sym__literalFloat_token1];
   ACTIONS 411 [aux_sym_ppUsesBlock_token1]; ACTIONS 413 [sym_kAdd; sym_kSub];
   ACTIONS 415 [sym_kAt]; ACTIONS 417 [sym_kTrue; sym_kFalse]; ACTIONS 419 [sym_labelNumber];
   ACTIONS 3 [sym__space]; ACTIONS 5 [sym_ppDirective]; ACTIONS 3 [sym_comment];
   ACTIONS 417 [sym_ppFragmentExpr]; ACTIONS 397 [sym_ppFragmentStmt];
   ACTIONS 403 [sym__literalStringMultiline]; ACTIONS 421 [sym_identifier];
   ACTIONS 423 [sym_kSpecialize]; ACTIONS 427 [sym_kAsm]; ACTIONS 429 [sym_kBegin];
   ACTIONS 431 [sym_kCase]; ACTIONS 433 [sym_kConst]; ACTIONS 3556 [sym_kEnd];
   ACTIONS 437 [sym_kFor]; ACTIONS 439 [sym_kFunction]; ACTIONS 441 [sym_kGoto];
   ACTIONS 443 [sym_kIf]; ACTIONS 445 [sym_kInherited]; ACTIONS 417 [sym_kNil];
   ACTIONS 415 [sym_kNot]; ACTIONS 439 [sym_kProcedure]; ACTIONS 447 [sym_kRaise];
   ACTIONS 449 [sym_kRepeat]; ACTIONS 451 [sym_kString]; ACTIONS 453 [sym_kTry];
   ACTIONS 455 [sym_kVar]; ACTIONS 457 [sym_kWhile]; ACTIONS 459 [sym_kWith]].

(** State 585. *)
Definition ts_parse_table_585 : parse_row :=
  [STATE 6213 [sym_if]; STATE 6327 [sym_ifElse; sym_while; sym_repeat; sym_for; sym_foreach;
   sym_try; sym_case; sym_block; sym_asm; sym_with; sym_raise; sym_statement; sym_goto;
   sym__statement]; STATE 14264 [sym_ifTr; sym_ifElseTr; sym_whileTr; sym_repeatTr; sym_forTr;
   sym_foreachTr; sym_tryTr; sym_caseTr]; STATE 14251 [sym_blockTr]; STATE 14264 [sym_asmTr;
   sym_withTr; sym_raiseTr; sym_statementTr; sym_gotoTr; sym__statementTr];
   STATE 13915 [sym_assignment]; STATE 11785 [sym_varAssignDef]; STATE 13915 [sym_varDef;
   sym_constDef]; STATE 6166 [sym_label]; STATE 14264 [sym__statementsTr]; STATE 8019 [sym__expr;
   sym_exprConditional]; STATE 7478 [sym__ref; sym_lambda; sym_inherited; sym_exprDot;
   sym_exprDeref; sym_exprAs; sym_exprTpl; sym_exprSubscript; sym_exprCall];
   STATE 8019 [sym_exprBinary; sym_exprUnary]; STATE 7478 [sym_exprParens; sym_exprBrackets;
   sym__literal; sym_literalString]; STATE 6664 [sym__literalString; sym_literalChar];
   STATE 7478 [sym_literalNumber]; STATE 7742 [sym__literalInt; sym__literalFloat];
   STATE 1380 [sym__ppIf]; STATE 6327 [sym__ppStatementBlock];
   STATE 11840 [aux_sym_labeledStatement_repeat1]; STATE 863 [aux_sym__statementsTr_repeat1];
   STATE 6664 [aux_sym_literalString_repeat1]; ACTIONS 397 [anon_sym_SEMI];
   ACTIONS 399 [anon_sym_LBRACK]; ACTIONS 401 [anon_sym_LPAREN];
   ACTIONS 403 [aux_sym__literalString_token1]; ACTIONS 405 [anon_sym_POUND];
   ACTIONS 407 [aux_sym__literalInt_token1]; ACTIONS 409 [aux_sym__literalInt_token2;
   aux_sym__literalInt_token3]; ACTIONS 407 [aux_sym__literalFloat_token1];
   ACTIONS 411 [aux_sym_ppUsesBlock_token1]; ACTIONS 413 [sym_kAdd; sym_kSub];
   ACTIONS 415 [sym_kAt]; ACTIONS 417 [sym_kTrue; sym_kFalse]; ACTIONS 419 [sym_labelNumber];
   ACTIONS 3 [sym__space]; ACTIONS 5 [sym_ppDirective]; ACTIONS 3 [sym_comment];
   ACTIONS 417 [sym_ppFragmentExpr]; ACTIONS 397 [sym_ppFragmentStmt];
   ACTIONS 403 [sym__literalStringMultiline]; ACTIONS 421 [sym_identifier];
   ACTIONS 423 [sym_kSpecialize]; ACTIONS 427 [sym_kAsm]; ACTIONS 429 [sym_kBegin];
   ACTIONS 431 [sym_kCase]; ACTIONS 433 [sym_kConst]; ACTIONS 3558 [sym_kEnd];
   ACTIONS 437 [sym_kFor]; ACTIONS 439 [sym_kFunction]; ACTIONS 441 [sym_kGoto];
   ACTIONS 443 [sym_kIf]; ACTIONS 445 [sym_kInherited]; ACTIONS 417 [sym_kNil];
   ACTIONS 415 [sym_kNot]; ACTIONS 439 [sym_kProcedure]; ACTIONS 447 [sym_kRaise];
   ACTIONS 449 [sym_kRepeat]; ACTIONS 451 [sym_kString]; ACTIONS 453 [sym_kTry];
   ACTIONS 455 [sym_kVar]; ACTIONS 457 [sym_kWhile]; ACTIONS 459 [sym_kWith]].

(** State 586. *)
Definition ts_parse_table_586 : parse_row :=
  [STATE 6213 [sym_if]; STATE 6327 [sym_ifElse; sym_while; sym_repeat; sym_for; sym_foreach;
   sym_try; sym_case; sym_block; sym_asm; sym_with; sym_raise; sym_statement; sym_goto;
   sym__statement]; STATE 14268 [sym_ifTr; sym_ifElseTr; sym_whileTr; sym_repeatTr; sym_forTr;
   sym_foreachTr; sym_tryTr; sym_caseTr]; STATE 14251 [sym_blockTr]; STATE 14268 [sym_asmTr;
   sym_withTr; sym_raiseTr; sym_statementTr; sym_gotoTr; sym__statementTr];
   STATE 13915 [sym_assignment]; STATE 11785 [sym_varAssignDef]; STATE 13915 [sym_varDef;
   sym_constDef]; STATE 6166 [sym_label]; STATE 14268 [sym__statementsTr]; STATE 8019 [sym__expr;
   sym_exprConditional]; STATE 7478 [sym__ref; sym_lambda; sym_inherited; sym_exprDot;
   sym_exprDeref; sym_exprAs; sym_exprTpl; sym_exprSubscript; sym_exprCall];
   STATE 8019 [sym_exprBinary; sym_exprUnary]; STATE 7478 [sym_exprParens; sym_exprBrackets;
   sym__literal; sym_literalString]; STATE 6664 [sym__literalString; sym_literalChar];
   STATE 7478 [sym_literalNumber]; STATE 7742 [sym__literalInt; sym__literalFloat];
   STATE 1380 [sym__ppIf]; STATE 6327 [sym__ppStatementBlock];
   STATE 11840 [aux_sym_labeledStatement_repeat1]; STATE 863 [aux_sym__statementsTr_repeat1];
   STATE 6664 [aux_sym_literalString_repeat1]; ACTIONS 397 [anon_sym_SEMI];
   ACTIONS 399 [anon_sym_LBRACK]; ACTIONS 401 [anon_sym_LPAREN];
   ACTIONS 403 [aux_sym__literalString_token1]; ACTIONS 405 [anon_sym_POUND];
   ACTIONS 407 [aux_sym__literalInt_token1]; ACTIONS 409 [aux_sym__literalInt_token2;
   aux_sym__literalInt_token3]; ACTIONS 407 [aux_sym__literalFloat_token1];
   ACTIONS 411 [aux_sym_ppUsesBlock_token1]; ACTIONS 413 [sym_kAdd; sym_kSub];
   ACTIONS 415 [sym_kAt]; ACTIONS 417 [sym_kTrue; sym_kFalse]; ACTIONS 419 [sym_labelNumber];
   ACTIONS 3 [sym__space]; ACTIONS 5 [sym_ppDirective]; ACTIONS 3 [sym_comment];
   ACTIONS 417 [sym_ppFragmentExpr]; ACTIONS 397 [sym_ppFragmentStmt];
   ACTIONS 403 [sym__literalStringMultiline]; ACTIONS 421 [sym_identifier];
   ACTIONS 423 [sym_kSpecialize]; ACTIONS 427 [sym_kAsm]; ACTIONS 429 [sym_kBegin];
   ACTIONS 431 [sym_kCase]; ACTIONS 433 [sym_kConst]; ACTIONS 3560 [sym_kEnd];
   ACTIONS 437 [sym_kFor]; ACTIONS 439 [sym_kFunction]; ACTIONS 441 [sym_kGoto];
   ACTIONS 443 [sym_kIf]; ACTIONS 445 [sym_kInherited]; ACTIONS 417 [sym_kNil];
   ACTIONS 415 [sym_kNot]; ACTIONS 439 [sym_kProcedure]; ACTIONS 447 [sym_kRaise];
   ACTIONS 449 [sym_kRepeat]; ACTIONS 451 [sym_kString]; ACTIONS 453 [sym_kTry];
   ACTIONS 455 [sym_kVar]; ACTIONS 457 [sym_kWhile]; ACTIONS 459 [sym_kWith]].

(** State 587. *)
Definition ts_parse_table_587 : parse_row :=
  [STATE 6213 [sym_if]; STATE 6327 [sym_ifElse; sym_while; sym_repeat; sym_for; sym_foreach;
   sym_try; sym_case; sym_block; sym_asm; sym_with; sym_raise; sym_statement; sym_goto;
   sym__statement]; STATE 14320 [sym_ifTr; sym_ifElseTr; sym_whileTr; sym_repeatTr; sym_forTr;
   sym_foreachTr; sym_tryTr; sym_caseTr]; STATE 14251 [sym_blockTr]; STATE 14320 [sym_asmTr;
   sym_withTr; sym_raiseTr; sym_statementTr; sym_gotoTr; sym__statementTr];
   STATE 13915 [sym_assignment]; STATE 11785 [sym_varAssignDef]; STATE 13915 [sym_varDef;
   sym_constDef]; STATE 6166 [sym_label]; STATE 14320 [sym__statementsTr]; STATE 8019 [sym__expr;
   sym_exprConditional]; STATE 7478 [sym__ref; sym_lambda; sym_inherited; sym_exprDot;
   sym_exprDeref; sym_exprAs; sym_exprTpl; sym_exprSubscript; sym_exprCall];
   STATE 8019 [sym_exprBinary; sym_exprUnary]; STATE 7478 [sym_exprParens; sym_exprBrackets;
   sym__literal; sym_literalString]; STATE 6664 [sym__literalString; sym_literalChar];
   STATE 7478 [sym_literalNumber]; STATE 7742 [sym__literalInt; sym__literalFloat];
   STATE 1380 [sym__ppIf]; STATE 6327 [sym__ppStatementBlock];
   STATE 11840 [aux_sym_labeledStatement_repeat1]; STATE 863 [aux_sym__statementsTr_repeat1];
   STATE 6664 [aux_sym_literalString_repeat1]; ACTIONS 397 [anon_sym_SEMI];
   ACTIONS 399 [anon_sym_LBRACK]; ACTIONS 401 [anon_sym_LPAREN];
   ACTIONS 403 [aux_sym__literalString_token1]; ACTIONS 405 [anon_sym_POUND];
   ACTIONS 407 [aux_sym__literalInt_token1]; ACTIONS 409 [aux_sym__literalInt_token2;
   aux_sym__literalInt_token3]; ACTIONS 407 [aux_sym__literalFloat_token1];
   ACTIONS 411 [aux_sym_ppUsesBlock_token1]; ACTIONS 413 [sym_kAdd; sym_kSub];
   ACTIONS 415 [sym_kAt]; ACTIONS 417 [sym_kTrue; sym_kFalse]; ACTIONS 419 [sym_labelNumber];
   ACTIONS 3 [sym__space]; ACTIONS 5 [sym_ppDirective]; ACTIONS 3 [sym_comment];
   ACTIONS 417 [sym_ppFragmentExpr]; ACTIONS 397 [sym_ppFragmentStmt];
   ACTIONS 403 [sym__literalStringMultiline]; ACTIONS 421 [sym_identifier];
   ACTIONS 423 [sym_kSpecialize]; ACTIONS 427 [sym_kAsm]; ACTIONS 429 [sym_kBegin];
   ACTIONS 431 [sym_kCase]; ACTIONS 433 [sym_kConst]; ACTIONS 3562 [sym_kEnd];
   ACTIONS 437 [sym_kFor]; ACTIONS 439 [sym_kFunction]; ACTIONS 441 [sym_kGoto];
   ACTIONS 443 [sym_kIf]; ACTIONS 445 [sym_kInherited]; ACTIONS 417 [sym_kNil];
   ACTIONS 415 [sym_kNot]; ACTIONS 439 [sym_kProcedure]; ACTIONS 447 [sym_kRaise];
   ACTIONS 449 [sym_kRepeat]; ACTIONS 451 [sym_kString]; ACTIONS 453 [sym_kTry];
   ACTIONS 455 [sym_kVar]; ACTIONS 457 [sym_kWhile]; ACTIONS 459 [sym_kWith]].

(** State 588. *)
Definition ts_parse_table_588 : parse_row :=
  [STATE 6213 [sym_if]; STATE 6327 [sym_ifElse; sym_while; sym_repeat; sym_for; sym_foreach;
   sym_try; sym_case; sym_block; sym_asm; sym_with; sym_raise; sym_statement; sym_goto;
   sym__statement]; STATE 14369 [sym_ifTr; sym_ifElseTr; sym_whileTr; sym_repeatTr; sym_forTr;
   sym_foreachTr; sym_tryTr; sym_caseTr]; STATE 14251 [sym_blockTr]; STATE 14369 [sym_asmTr;
   sym_withTr; sym_raiseTr; sym_statementTr; sym_gotoTr; sym__statementTr];
   STATE 13915 [sym_assignment]; STATE 11785 [sym_varAssignDef]; STATE 13915 [sym_varDef;
   sym_constDef]; STATE 6166 [sym_label]; STATE 14369 [sym__statementsTr]; STATE 8019 [sym__expr;
   sym_exprConditional]; STATE 7478 [sym__ref; sym_lambda; sym_inherited; sym_exprDot;
   sym_exprDeref; sym_exprAs; sym_exprTpl; sym_exprSubscript; sym_exprCall];
   STATE 8019 [sym_exprBinary; sym_exprUnary]; STATE 7478 [sym_exprParens; sym_exprBrackets;
   sym__literal; sym_literalString]; STATE 6664 [sym__literalString; sym_literalChar];
   STATE 7478 [sym_literalNumber]; STATE 7742 [sym__literalInt; sym__literalFloat];
   STATE 1380 [sym__ppIf]; STATE 6327 [sym__ppStatementBlock];
   STATE 11840 [aux_sym_labeledStatement_repeat1]; STATE 863 [aux_sym__statementsTr_repeat1];
   STATE 6664 [aux_sym_literalString_repeat1]; ACTIONS 397 [anon_sym_SEMI];
   ACTIONS 399 [anon_sym_LBRACK]; ACTIONS 401 [anon_sym_LPAREN];
   ACTIONS 403 [aux_sym__literalString_token1]; ACTIONS 405 [anon_sym_POUND];
   ACTIONS 407 [aux_sym__literalInt_token1]; ACTIONS 409 [aux_sym__literalInt_token2;
   aux_sym__literalInt_token3]; ACTIONS 407 [aux_sym__literalFloat_token1];
   ACTIONS 411 [aux_sym_ppUsesBlock_token1]; ACTIONS 413 [sym_kAdd; sym_kSub];
   ACTIONS 415 [sym_kAt]; ACTIONS 417 [sym_kTrue; sym_kFalse]; ACTIONS 419 [sym_labelNumber];
   ACTIONS 3 [sym__space]; ACTIONS 5 [sym_ppDirective]; ACTIONS 3 [sym_comment];
   ACTIONS 417 [sym_ppFragmentExpr]; ACTIONS 397 [sym_ppFragmentStmt];
   ACTIONS 403 [sym__literalStringMultiline]; ACTIONS 421 [sym_identifier];
   ACTIONS 423 [sym_kSpecialize]; ACTIONS 427 [sym_kAsm]; ACTIONS 429 [sym_kBegin];
   ACTIONS 431 [sym_kCase]; ACTIONS 433 [sym_kConst]; ACTIONS 3564 [sym_kEnd];
   ACTIONS 437 [sym_kFor]; ACTIONS 439 [sym_kFunction]; ACTIONS 441 [sym_kGoto];
   ACTIONS 443 [sym_kIf]; ACTIONS 445 [sym_kInherited]; ACTIONS 417 [sym_kNil];
   ACTIONS 415 [sym_kNot]; ACTIONS 439 [sym_kProcedure]; ACTIONS 447 [sym_kRaise];
   ACTIONS 449 [sym_kRepeat]; ACTIONS 451 [sym_kString]; ACTIONS 453 [sym_kTry];
   ACTIONS 455 [sym_kVar]; ACTIONS 457 [sym_kWhile]; ACTIONS 459 [sym_kWith]].

(** State 589. *)
Definition ts_parse_table_589 : parse_row :=
  [STATE 6213 [sym_if]; STATE 6327 [sym_ifElse; sym_while; sym_repeat; sym_for; sym_foreach;
   sym_try; sym_case; sym_block; sym_asm; sym_with; sym_raise; sym_statement; sym_goto;
   sym__statement]; STATE 14429 [sym_ifTr; sym_ifElseTr; sym_whileTr; sym_repeatTr; sym_forTr;
   sym_foreachTr; sym_tryTr; sym_caseTr]; STATE 14251 [sym_blockTr]; STATE 14429 [sym_asmTr;
   sym_withTr; sym_raiseTr; sym_statementTr; sym_gotoTr; sym__statementTr];
   STATE 13915 [sym_assignment]; STATE 11785 [sym_varAssignDef]; STATE 13915 [sym_varDef;
   sym_constDef]; STATE 6166 [sym_label]; STATE 14429 [sym__statementsTr]; STATE 8019 [sym__expr;
   sym_exprConditional]; STATE 7478 [sym__ref; sym_lambda; sym_inherited; sym_exprDot;
   sym_exprDeref; sym_exprAs; sym_exprTpl; sym_exprSubscript; sym_exprCall];
   STATE 8019 [sym_exprBinary; sym_exprUnary]; STATE 7478 [sym_exprParens; sym_exprBrackets;
   sym__literal; sym_literalString]; STATE 6664 [sym__literalString; sym_literalChar];
   STATE 7478 [sym_literalNumber]; STATE 7742 [sym__literalInt; sym__literalFloat];
   STATE 1380 [sym__ppIf]; STATE 6327 [sym__ppStatementBlock];
   STATE 11840 [aux_sym_labeledStatement_repeat1]; STATE 863 [aux_sym__statementsTr_repeat1];
   STATE 6664 [aux_sym_literalString_repeat1]; ACTIONS 397 [anon_sym_SEMI];
   ACTIONS 399 [anon_sym_LBRACK]; ACTIONS 401 [anon_sym_LPAREN];
   ACTIONS 403 [aux_sym__literalString_token1]; ACTIONS 405 [anon_sym_POUND];
   ACTIONS 407 [aux_sym__literalInt_token1]; ACTIONS 409 [aux_sym__literalInt_token2;
   aux_sym__literalInt_token3]; ACTIONS 407 [aux_sym__literalFloat_token1];
   ACTIONS 411 [aux_sym_ppUsesBlock_token1]; ACTIONS 413 [sym_kAdd; sym_kSub];
   ACTIONS 415 [sym_kAt]; ACTIONS 417 [sym_kTrue; sym_kFalse]; ACTIONS 419 [sym_labelNumber];
   ACTIONS 3 [sym__space]; ACTIONS 5 [sym_ppDirective]; ACTIONS 3 [sym_comment];
   ACTIONS 417 [sym_ppFragmentExpr]; ACTIONS 397 [sym_ppFragmentStmt];
   ACTIONS 403 [sym__literalStringMultiline]; ACTIONS 421 [sym_identifier];
   ACTIONS 423 [sym_kSpecialize]; ACTIONS 427 [sym_kAsm]; ACTIONS 429 [sym_kBegin];
   ACTIONS 431 [sym_kCase]; ACTIONS 433 [sym_kConst]; ACTIONS 3566 [sym_kEnd];
   ACTIONS 437 [sym_kFor]; ACTIONS 439 [sym_kFunction]; ACTIONS 441 [sym_kGoto];
   ACTIONS 443 [sym_kIf]; ACTIONS 445 [sym_kInherited]; ACTIONS 417 [sym_kNil];
   ACTIONS 415 [sym_kNot]; ACTIONS 439 [sym_kProcedure]; ACTIONS 447 [sym_kRaise];
   ACTIONS 449 [sym_kRepeat]; ACTIONS 451 [sym_kString]; ACTIONS 453 [sym_kTry];
   ACTIONS 455 [sym_kVar]; ACTIONS 457 [sym_kWhile]; ACTIONS 459 [sym_kWith]].

(** State 590. *)
Definition ts_parse_table_590 : parse_row :=
  [STATE 6213 [sym_if]; STATE 6327 [sym_ifElse; sym_while; sym_repeat; sym_for; sym_foreach;
   sym_try; sym_case; sym_block; sym_asm; sym_with; sym_raise; sym_statement; sym_goto;
   sym__statement]; STATE 14476 [sym_ifTr; sym_ifElseTr; sym_whileTr; sym_repeatTr; sym_forTr;
   sym_foreachTr; sym_tryTr; sym_caseTr]; STATE 14251 [sym_blockTr]; STATE 14476 [sym_asmTr;
   sym_withTr; sym_raiseTr; sym_statementTr; sym_gotoTr; sym__statementTr];
   STATE 13915 [sym_assignment]; STATE 11785 [sym_varAssignDef]; STATE 13915 [sym_varDef;
   sym_constDef]; STATE 6166 [sym_label]; STATE 14476 [sym__statementsTr]; STATE 8019 [sym__expr;
   sym_exprConditional]; STATE 7478 [sym__ref; sym_lambda; sym_inherited; sym_exprDot;
   sym_exprDeref; sym_exprAs; sym_exprTpl; sym_exprSubscript; sym_exprCall];
   STATE 8019 [sym_exprBinary; sym_exprUnary]; STATE 7478 [sym_exprParens; sym_exprBrackets;
   sym__literal; sym_literalString]; STATE 6664 [sym__literalString; sym_literalChar];
   STATE 7478 [sym_literalNumber]; STATE 7742 [sym__literalInt; sym__literalFloat];
   STATE 1380 [sym__ppIf]; STATE 6327 [sym__ppStatementBlock];
   STATE 11840 [aux_sym_labeledStatement_repeat1]; STATE 863 [aux_sym__statementsTr_repeat1];
   STATE 6664 [aux_sym_literalString_repeat1]; ACTIONS 397 [anon_sym_SEMI];
   ACTIONS 399 [anon_sym_LBRACK]; ACTIONS 401 [anon_sym_LPAREN];
   ACTIONS 403 [aux_sym__literalString_token1]; ACTIONS 405 [anon_sym_POUND];
   ACTIONS 407 [aux_sym__literalInt_token1]; ACTIONS 409 [aux_sym__literalInt_token2;
   aux_sym__literalInt_token3]; ACTIONS 407 [aux_sym__literalFloat_token1];
   ACTIONS 411 [aux_sym_ppUsesBlock_token1]; ACTIONS 413 [sym_kAdd; sym_kSub];
   ACTIONS 415 [sym_kAt]; ACTIONS 417 [sym_kTrue; sym_kFalse]; ACTIONS 419 [sym_labelNumber];
   ACTIONS 3 [sym__space]; ACTIONS 5 [sym_ppDirective]; ACTIONS 3 [sym_comment];
   ACTIONS 417 [sym_ppFragmentExpr]; ACTIONS 397 [sym_ppFragmentStmt];
   ACTIONS 403 [sym__literalStringMultiline]; ACTIONS 421 [sym_identifier];
   ACTIONS 423 [sym_kSpecialize]; ACTIONS 427 [sym_kAsm]; ACTIONS 429 [sym_kBegin];
   ACTIONS 431 [sym_kCase]; ACTIONS 433 [sym_kConst]; ACTIONS 3568 [sym_kEnd];
   ACTIONS 437 [sym_kFor]; ACTIONS 439 [sym_kFunction]; ACTIONS 441 [sym_kGoto];
   ACTIONS 443 [sym_kIf]; ACTIONS 445 [sym_kInherited]; ACTIONS 417 [sym_kNil];
   ACTIONS 415 [sym_kNot]; ACTIONS 439 [sym_kProcedure]; ACTIONS 447 [sym_kRaise];
   ACTIONS 449 [sym_kRepeat]; ACTIONS 451 [sym_kString]; ACTIONS 453 [sym_kTry];
   ACTIONS 455 [sym_kVar]; ACTIONS 457 [sym_kWhile]; ACTIONS 459 [sym_kWith]].

(** State 591. *)
Definition ts_parse_table_591 : parse_row :=
  [STATE 6213 [sym_if]; STATE 6327 [sym_ifElse; sym_while; sym_repeat; sym_for; sym_foreach;
   sym_try; sym_case; sym_block; sym_asm; sym_with; sym_raise; sym_statement; sym_goto;
   sym__statement]; STATE 14521 [sym_ifTr; sym_ifElseTr; sym_whileTr; sym_repeatTr; sym_forTr;
   sym_foreachTr; sym_tryTr; sym_caseTr]; STATE 14251 [sym_blockTr]; STATE 14521 [sym_asmTr;
   sym_withTr; sym_raiseTr; sym_statementTr; sym_gotoTr; sym__statementTr];
   STATE 13915 [sym_assignment]; STATE 11785 [sym_varAssignDef]; STATE 13915 [sym_varDef;
   sym_constDef]; STATE 6166 [sym_label]; STATE 14521 [sym__statementsTr]; STATE 8019 [sym__expr;
   sym_exprConditional]; STATE 7478 [sym__ref; sym_lambda; sym_inherited; sym_exprDot;
   sym_exprDeref; sym_exprAs; sym_exprTpl; sym_exprSubscript; sym_exprCall];
   STATE 8019 [sym_exprBinary; sym_exprUnary]; STATE 7478 [sym_exprParens; sym_exprBrackets;
   sym__literal; sym_literalString]; STATE 6664 [sym__literalString; sym_literalChar];
   STATE 7478 [sym_literalNumber]; STATE 7742 [sym__literalInt; sym__literalFloat];
   STATE 1380 [sym__ppIf]; STATE 6327 [sym__ppStatementBlock];
   STATE 11840 [aux_sym_labeledStatement_repeat1]; STATE 863 [aux_sym__statementsTr_repeat1];
   STATE 6664 [aux_sym_literalString_repeat1]; ACTIONS 397 [anon_sym_SEMI];
   ACTIONS 399 [anon_sym_LBRACK]; ACTIONS 401 [anon_sym_LPAREN];
   ACTIONS 403 [aux_sym__literalString_token1]; ACTIONS 405 [anon_sym_POUND];
   ACTIONS 407 [aux_sym__literalInt_token1]; ACTIONS 409 [aux_sym__literalInt_token2;
   aux_sym__literalInt_token3]; ACTIONS 407 [aux_sym__literalFloat_token1];
   ACTIONS 411 [aux_sym_ppUsesBlock_token1]; ACTIONS 413 [sym_kAdd; sym_kSub];
   ACTIONS 415 [sym_kAt]; ACTIONS 417 [sym_kTrue; sym_kFalse]; ACTIONS 419 [sym_labelNumber];
   ACTIONS 3 [sym__space]; ACTIONS 5 [sym_ppDirective]; ACTIONS 3 [sym_comment];
   ACTIONS 417 [sym_ppFragmentExpr]; ACTIONS 397 [sym_ppFragmentStmt];
   ACTIONS 403 [sym__literalStringMultiline]; ACTIONS 421 [sym_identifier];
   ACTIONS 423 [sym_kSpecialize]; ACTIONS 427 [sym_kAsm]; ACTIONS 429 [sym_kBegin];
   ACTIONS 431 [sym_kCase]; ACTIONS 433 [sym_kConst]; ACTIONS 3570 [sym_kEnd];
   ACTIONS 437 [sym_kFor]; ACTIONS 439 [sym_kFunction]; ACTIONS 441 [sym_kGoto];
   ACTIONS 443 [sym_kIf]; ACTIONS 445 [sym_kInherited]; ACTIONS 417 [sym_kNil];
   ACTIONS 415 [sym_kNot]; ACTIONS 439 [sym_kProcedure]; ACTIONS 447 [sym_kRaise];
   ACTIONS 449 [sym_kRepeat]; ACTIONS 451 [sym_kString]; ACTIONS 453 [sym_kTry];
   ACTIONS 455 [sym_kVar]; ACTIONS 457 [sym_kWhile]; ACTIONS 459 [sym_kWith]].

(** State 592. *)
Definition ts_parse_table_592 : parse_row :=
  [STATE 6213 [sym_if]; STATE 6327 [sym_ifElse; sym_while; sym_repeat; sym_for; sym_foreach;
   sym_try; sym_case; sym_block; sym_asm; sym_with; sym_raise; sym_statement; sym_goto;
   sym__statement]; STATE 14572 [sym_ifTr; sym_ifElseTr; sym_whileTr; sym_repeatTr; sym_forTr;
   sym_foreachTr; sym_tryTr; sym_caseTr]; STATE 14251 [sym_blockTr]; STATE 14572 [sym_asmTr;
   sym_withTr; sym_raiseTr; sym_statementTr; sym_gotoTr; sym__statementTr];
   STATE 13915 [sym_assignment]; STATE 11785 [sym_varAssignDef]; STATE 13915 [sym_varDef;
   sym_constDef]; STATE 6166 [sym_label]; STATE 14572 [sym__statementsTr]; STATE 8019 [sym__expr;
   sym_exprConditional]; STATE 7478 [sym__ref; sym_lambda; sym_inherited; sym_exprDot;
   sym_exprDeref; sym_exprAs; sym_exprTpl; sym_exprSubscript; sym_exprCall];
   STATE 8019 [sym_exprBinary; sym_exprUnary]; STATE 7478 [sym_exprParens; sym_exprBrackets;
   sym__literal; sym_literalString]; STATE 6664 [sym__literalString; sym_literalChar];
   STATE 7478 [sym_literalNumber]; STATE 7742 [sym__literalInt; sym__literalFloat];
   STATE 1380 [sym__ppIf]; STATE 6327 [sym__ppStatementBlock];
   STATE 11840 [aux_sym_labeledStatement_repeat1]; STATE 863 [aux_sym__statementsTr_repeat1];
   STATE 6664 [aux_sym_literalString_repeat1]; ACTIONS 397 [anon_sym_SEMI];
   ACTIONS 399 [anon_sym_LBRACK]; ACTIONS 401 [anon_sym_LPAREN];
   ACTIONS 403 [aux_sym__literalString_token1]; ACTIONS 405 [anon_sym_POUND];
   ACTIONS 407 [aux_sym__literalInt_token1]; ACTIONS 409 [aux_sym__literalInt_token2;
   aux_sym__literalInt_token3]; ACTIONS 407 [aux_sym__literalFloat_token1];
   ACTIONS 411 [aux_sym_ppUsesBlock_token1]; ACTIONS 413 [sym_kAdd; sym_kSub];
   ACTIONS 415 [sym_kAt]; ACTIONS 417 [sym_kTrue; sym_kFalse]; ACTIONS 419 [sym_labelNumber];
   ACTIONS 3 [sym__space]; ACTIONS 5 [sym_ppDirective]; ACTIONS 3 [sym_comment];
   ACTIONS 417 [sym_ppFragmentExpr]; ACTIONS 397 [sym_ppFragmentStmt];
   ACTIONS 403 [sym__literalStringMultiline]; ACTIONS 421 [sym_identifier];
   ACTIONS 423 [sym_kSpecialize]; ACTIONS 427 [sym_kAsm]; ACTIONS 429 [sym_kBegin];
   ACTIONS 431 [sym_kCase]; ACTIONS 433 [sym_kConst]; ACTIONS 3572 [sym_kEnd];
   ACTIONS 437 [sym_kFor]; ACTIONS 439 [sym_kFunction]; ACTIONS 441 [sym_kGoto];
   ACTIONS 443 [sym_kIf]; ACTIONS 445 [sym_kInherited]; ACTIONS 417 [sym_kNil];
   ACTIONS 415 [sym_kNot]; ACTIONS 439 [sym_kProcedure]; ACTIONS 447 [sym_kRaise];
   ACTIONS 449 [sym_kRepeat]; ACTIONS 451 [sym_kString]; ACTIONS 453 [sym_kTry];
   ACTIONS 455 [sym_kVar]; ACTIONS 457 [sym_kWhile]; ACTIONS 459 [sym_kWith]].

(** State 593. *)
Definition ts_parse_table_593 : parse_row :=
  [STATE 6213 [sym_if]; STATE 6327 [sym_ifElse; sym_while; sym_repeat; sym_for; sym_foreach;
   sym_try; sym_case; sym_block; sym_asm; sym_with; sym_raise; sym_statement; sym_goto;
   sym__statement]; STATE 14626 [sym_ifTr; sym_ifElseTr; sym_whileTr; sym_repeatTr; sym_forTr;
   sym_foreachTr; sym_tryTr; sym_caseTr]; STATE 14251 [sym_blockTr]; STATE 14626 [sym_asmTr;
   sym_withTr; sym_raiseTr; sym_statementTr; sym_gotoTr; sym__statementTr];
   STATE 13915 [sym_assignment]; STATE 11785 [sym_varAssignDef]; STATE 13915 [sym_varDef;
   sym_constDef]; STATE 6166 [sym_label]; STATE 14626 [sym__statementsTr]; STATE 8019 [sym__expr;
   sym_exprConditional]; STATE 7478 [sym__ref; sym_lambda; sym_inherited; sym_exprDot;
   sym_exprDeref; sym_exprAs; sym_exprTpl; sym_exprSubscript; sym_exprCall];
   STATE 8019 [sym_exprBinary; sym_exprUnary]; STATE 7478 [sym_exprParens; sym_exprBrackets;
   sym__literal; sym_literalString]; STATE 6664 [sym__literalString; sym_literalChar];
   STATE 7478 [sym_literalNumber]; STATE 7742 [sym__literalInt; sym__literalFloat];
   STATE 1380 [sym__ppIf]; STATE 6327 [sym__ppStatementBlock];
   STATE 11840 [aux_sym_labeledStatement_repeat1]; STATE 863 [aux_sym__statementsTr_repeat1];
   STATE 6664 [aux_sym_literalString_repeat1]; ACTIONS 397 [anon_sym_SEMI];
   ACTIONS 399 [anon_sym_LBRACK]; ACTIONS 401 [anon_sym_LPAREN];
   ACTIONS 403 [aux_sym__literalString_token1]; ACTIONS 405 [anon_sym_POUND];
   ACTIONS 407 [aux_sym__literalInt_token1]; ACTIONS 409 [aux_sym__literalInt_token2;
   aux_sym__literalInt_token3]; ACTIONS 407 [aux_sym__literalFloat_token1];
   ACTIONS 411 [aux_sym_ppUsesBlock_token1]; ACTIONS 413 [sym_kAdd; sym_kSub];
   ACTIONS 415 [sym_kAt]; ACTIONS 417 [sym_kTrue; sym_kFalse]; ACTIONS 419 [sym_labelNumber];
   ACTIONS 3 [sym__space]; ACTIONS 5 [sym_ppDirective]; ACTIONS 3 [sym_comment];
   ACTIONS 417 [sym_ppFragmentExpr]; ACTIONS 397 [sym_ppFragmentStmt];
   ACTIONS 403 [sym__literalStringMultiline]; ACTIONS 421 [sym_identifier];
   ACTIONS 423 [sym_kSpecialize]; ACTIONS 427 [sym_kAsm]; ACTIONS 429 [sym_kBegin];
   ACTIONS 431 [sym_kCase]; ACTIONS 433 [sym_kConst]; ACTIONS 3574 [sym_kEnd];
   ACTIONS 437 [sym_kFor]; ACTIONS 439 [sym_kFunction]; ACTIONS 441 [sym_kGoto];
   ACTIONS 443 [sym_kIf]; ACTIONS 445 [sym_kInherited]; ACTIONS 417 [sym_kNil];
   ACTIONS 415 [sym_kNot]; ACTIONS 439 [sym_kProcedure]; ACTIONS 447 [sym_kRaise];
   ACTIONS 449 [sym_kRepeat]; ACTIONS 451 [sym_kString]; ACTIONS 453 [sym_kTry];
   ACTIONS 455 [sym_kVar]; ACTIONS 457 [sym_kWhile]; ACTIONS 459 [sym_kWith]].

(** State 594. *)
Definition ts_parse_table_594 : parse_row :=
  [STATE 6213 [sym_if]; STATE 6327 [sym_ifElse; sym_while; sym_repeat; sym_for; sym_foreach;
   sym_try; sym_case; sym_block; sym_asm; sym_with; sym_raise; sym_statement; sym_goto;
   sym__statement]; STATE 14706 [sym_ifTr; sym_ifElseTr; sym_whileTr; sym_repeatTr; sym_forTr;
   sym_foreachTr; sym_tryTr; sym_caseTr]; STATE 14251 [sym_blockTr]; STATE 14706 [sym_asmTr;
   sym_withTr; sym_raiseTr; sym_statementTr; sym_gotoTr; sym__statementTr];
   STATE 13915 [sym_assignment]; STATE 11785 [sym_varAssignDef]; STATE 13915 [sym_varDef;
   sym_constDef]; STATE 6166 [sym_label]; STATE 14706 [sym__statementsTr]; STATE 8019 [sym__expr;
   sym_exprConditional]; STATE 7478 [sym__ref; sym_lambda; sym_inherited; sym_exprDot;
   sym_exprDeref; sym_exprAs; sym_exprTpl; sym_exprSubscript; sym_exprCall];
   STATE 8019 [sym_exprBinary; sym_exprUnary]; STATE 7478 [sym_exprParens; sym_exprBrackets;
   sym__literal; sym_literalString]; STATE 6664 [sym__literalString; sym_literalChar];
   STATE 7478 [sym_literalNumber]; STATE 7742 [sym__literalInt; sym__literalFloat];
   STATE 1380 [sym__ppIf]; STATE 6327 [sym__ppStatementBlock];
   STATE 11840 [aux_sym_labeledStatement_repeat1]; STATE 863 [aux_sym__statementsTr_repeat1];
   STATE 6664 [aux_sym_literalString_repeat1]; ACTIONS 397 [anon_sym_SEMI];
   ACTIONS 399 [anon_sym_LBRACK]; ACTIONS 401 [anon_sym_LPAREN];
   ACTIONS 403 [aux_sym__literalString_token1]; ACTIONS 405 [anon_sym_POUND];
   ACTIONS 407 [aux_sym__literalInt_token1]; ACTIONS 409 [aux_sym__literalInt_token2;
   aux_sym__literalInt_token3]; ACTIONS 407 [aux_sym__literalFloat_token1];
   ACTIONS 411 [aux_sym_ppUsesBlock_token1]; ACTIONS 413 [sym_kAdd; sym_kSub];
   ACTIONS 415 [sym_kAt]; ACTIONS 417 [sym_kTrue; sym_kFalse]; ACTIONS 419 [sym_labelNumber];
   ACTIONS 3 [sym__space]; ACTIONS 5 [sym_ppDirective]; ACTIONS 3 [sym_comment];
   ACTIONS 417 [sym_ppFragmentExpr]; ACTIONS 397 [sym_ppFragmentStmt];
   ACTIONS 403 [sym__literalStringMultiline]; ACTIONS 421 [sym_identifier];
   ACTIONS 423 [sym_kSpecialize]; ACTIONS 427 [sym_kAsm]; ACTIONS 429 [sym_kBegin];
   ACTIONS 431 [sym_kCase]; ACTIONS 433 [sym_kConst]; ACTIONS 3576 [sym_kEnd];
   ACTIONS 437 [sym_kFor]; ACTIONS 439 [sym_kFunction]; ACTIONS 441 [sym_kGoto];
   ACTIONS 443 [sym_kIf]; ACTIONS 445 [sym_kInherited]; ACTIONS 417 [sym_kNil];
   ACTIONS 415 [sym_kNot]; ACTIONS 439 [sym_kProcedure]; ACTIONS 447 [sym_kRaise];
   ACTIONS 449 [sym_kRepeat]; ACTIONS 451 [sym_kString]; ACTIONS 453 [sym_kTry];
   ACTIONS 455 [sym_kVar]; ACTIONS 457 [sym_kWhile]; ACTIONS 459 [sym_kWith]].

(** State 595. *)
Definition ts_parse_table_595 : parse_row :=
  [STATE 6213 [sym_if]; STATE 6327 [sym_ifElse; sym_while; sym_repeat; sym_for; sym_foreach;
   sym_try; sym_case; sym_block; sym_asm; sym_with; sym_raise; sym_statement; sym_goto;
   sym__statement]; STATE 14749 [sym_ifTr; sym_ifElseTr; sym_whileTr; sym_repeatTr; sym_forTr;
   sym_foreachTr; sym_tryTr; sym_caseTr]; STATE 14251 [sym_blockTr]; STATE 14749 [sym_asmTr;
   sym_withTr; sym_raiseTr; sym_statementTr; sym_gotoTr; sym__statementTr];
   STATE 13915 [sym_assignment]; STATE 11785 [sym_varAssignDef]; STATE 13915 [sym_varDef;
   sym_constDef]; STATE 6166 [sym_label]; STATE 14749 [sym__statementsTr]; STATE 8019 [sym__expr;
   sym_exprConditional]; STATE 7478 [sym__ref; sym_lambda; sym_inherited; sym_exprDot;
   sym_exprDeref; sym_exprAs; sym_exprTpl; sym_exprSubscript; sym_exprCall];
   STATE 8019 [sym_exprBinary; sym_exprUnary]; STATE 7478 [sym_exprParens; sym_exprBrackets;
   sym__literal; sym_literalString]; STATE 6664 [sym__literalString; sym_literalChar];
   STATE 7478 [sym_literalNumber]; STATE 7742 [sym__literalInt; sym__literalFloat];
   STATE 1380 [sym__ppIf]; STATE 6327 [sym__ppStatementBlock];
   STATE 11840 [aux_sym_labeledStatement_repeat1]; STATE 863 [aux_sym__statementsTr_repeat1];
   STATE 6664 [aux_sym_literalString_repeat1]; ACTIONS 397 [anon_sym_SEMI];
   ACTIONS 399 [anon_sym_LBRACK]; ACTIONS 401 [anon_sym_LPAREN];
   ACTIONS 403 [aux_sym__literalString_token1]; ACTIONS 405 [anon_sym_POUND];
   ACTIONS 407 [aux_sym__literalInt_token1]; ACTIONS 409 [aux_sym__literalInt_token2;
   aux_sym__literalInt_token3]; ACTIONS 407 [aux_sym__literalFloat_token1];
   ACTIONS 411 [aux_sym_ppUsesBlock_token1]; ACTIONS 413 [sym_kAdd; sym_kSub];
   ACTIONS 415 [sym_kAt]; ACTIONS 417 [sym_kTrue; sym_kFalse]; ACTIONS 419 [sym_labelNumber];
   ACTIONS 3 [sym__space]; ACTIONS 5 [sym_ppDirective]; ACTIONS 3 [sym_comment];
   ACTIONS 417 [sym_ppFragmentExpr]; ACTIONS 397 [sym_ppFragmentStmt];
   ACTIONS 403 [sym__literalStringMultiline]; ACTIONS 421 [sym_identifier];
   ACTIONS 423 [sym_kSpecialize]; ACTIONS 427 [sym_kAsm]; ACTIONS 429 [sym_kBegin];
   ACTIONS 431 [sym_kCase]; ACTIONS 433 [sym_kConst]; ACTIONS 3578 [sym_kEnd];
   ACTIONS 437 [sym_kFor]; ACTIONS 439 [sym_kFunction]; ACTIONS 441 [sym_kGoto];
   ACTIONS 443 [sym_kIf]; ACTIONS 445 [sym_kInherited]; ACTIONS 417 [sym_kNil];
   ACTIONS 415 [sym_kNot]; ACTIONS 439 [sym_kProcedure]; ACTIONS 447 [sym_kRaise];
   ACTIONS 449 [sym_kRepeat]; ACTIONS 451 [sym_kString]; ACTIONS 453 [sym_kTry];
   ACTIONS 455 [sym_kVar]; ACTIONS 457 [sym_kWhile]; ACTIONS 459 [sym_kWith]].

(** State 596. *)
Definition ts_parse_table_596 : parse_row :=
  [STATE 6213 [sym_if]; STATE 6327 [sym_ifElse; sym_while; sym_repeat; sym_for; sym_foreach;
   sym_try; sym_case; sym_block; sym_asm; sym_with; sym_raise; sym_statement; sym_goto;
   sym__statement]; STATE 14793 [sym_ifTr; sym_ifElseTr; sym_whileTr; sym_repeatTr; sym_forTr;
   sym_foreachTr; sym_tryTr; sym_caseTr]; STATE 14251 [sym_blockTr]; STATE 14793 [sym_asmTr;
   sym_withTr; sym_raiseTr; sym_statementTr; sym_gotoTr; sym__statementTr];
   STATE 13915 [sym_assignment]; STATE 11785 [sym_varAssignDef]; STATE 13915 [sym_varDef;
   sym_constDef]; STATE 6166 [sym_label]; STATE 14793 [sym__statementsTr]; STATE 8019 [sym__expr;
   sym_exprConditional]; STATE 7478 [sym__ref; sym_lambda; sym_inherited; sym_exprDot;
   sym_exprDeref; sym_exprAs; sym_exprTpl; sym_exprSubscript; sym_exprCall];
   STATE 8019 [sym_exprBinary; sym_exprUnary]; STATE 7478 [sym_exprParens; sym_exprBrackets;
   sym__literal; sym_literalString]; STATE 6664 [sym__literalString; sym_literalChar];
   STATE 7478 [sym_literalNumber]; STATE 7742 [sym__literalInt; sym__literalFloat];
   STATE 1380 [sym__ppIf]; STATE 6327 [sym__ppStatementBlock];
   STATE 11840 [aux_sym_labeledStatement_repeat1]; STATE 863 [aux_sym__statementsTr_repeat1];
   STATE 6664 [aux_sym_literalString_repeat1]; ACTIONS 397 [anon_sym_SEMI];
   ACTIONS 399 [anon_sym_LBRACK]; ACTIONS 401 [anon_sym_LPAREN];
   ACTIONS 403 [aux_sym__literalString_token1]; ACTIONS 405 [anon_sym_POUND];
   ACTIONS 407 [aux_sym__literalInt_token1]; ACTIONS 409 [aux_sym__literalInt_token2;
   aux_sym__literalInt_token3]; ACTIONS 407 [aux_sym__literalFloat_token1];
   ACTIONS 411 [aux_sym_ppUsesBlock_token1]; ACTIONS 413 [sym_kAdd; sym_kSub];
   ACTIONS 415 [sym_kAt]; ACTIONS 417 [sym_kTrue; sym_kFalse]; ACTIONS 419 [sym_labelNumber];
   ACTIONS 3 [sym__space]; ACTIONS 5 [sym_ppDirective]; ACTIONS 3 [sym_comment];
   ACTIONS 417 [sym_ppFragmentExpr]; ACTIONS 397 [sym_ppFragmentStmt];
   ACTIONS 403 [sym__literalStringMultiline]; ACTIONS 421 [sym_identifier];
   ACTIONS 423 [sym_kSpecialize]; ACTIONS 427 [sym_kAsm]; ACTIONS 429 [sym_kBegin];
   ACTIONS 431 [sym_kCase]; ACTIONS 433 [sym_kConst]; ACTIONS 3580 [sym_kEnd];
   ACTIONS 437 [sym_kFor]; ACTIONS 439 [sym_kFunction]; ACTIONS 441 [sym_kGoto];
   ACTIONS 443 [sym_kIf]; ACTIONS 445 [sym_kInherited]; ACTIONS 417 [sym_kNil];
   ACTIONS 415 [sym_kNot]; ACTIONS 439 [sym_kProcedure]; ACTIONS 447 [sym_kRaise];
   ACTIONS 449 [sym_kRepeat]; ACTIONS 451 [sym_kString]; ACTIONS 453 [sym_kTry];
   ACTIONS 455 [sym_kVar]; ACTIONS 457 [sym_kWhile]; ACTIONS 459 [sym_kWith]].

(** State 597. *)
Definition ts_parse_table_597 : parse_row :=
  [STATE 6213 [sym_if]; STATE 6327 [sym_ifElse; sym_while; sym_repeat; sym_for; sym_foreach;
   sym_try; sym_case; sym_block; sym_asm; sym_with; sym_raise; sym_statement; sym_goto;
   sym__statement]; STATE 14839 [sym_ifTr; sym_ifElseTr; sym_whileTr; sym_repeatTr; sym_forTr;
   sym_foreachTr; sym_tryTr; sym_caseTr]; STATE 14251 [sym_blockTr]; STATE 14839 [sym_asmTr;
   sym_withTr; sym_raiseTr; sym_statementTr; sym_gotoTr; sym__statementTr];
   STATE 13915 [sym_assignment]; STATE 11785 [sym_varAssignDef]; STATE 13915 [sym_varDef;
   sym_constDef]; STATE 6166 [sym_label]; STATE 14839 [sym__statementsTr]; STATE 8019 [sym__expr;
   sym_exprConditional]; STATE 7478 [sym__ref; sym_lambda; sym_inherited; sym_exprDot;
   sym_exprDeref; sym_exprAs; sym_exprTpl; sym_exprSubscript; sym_exprCall];
   STATE 8019 [sym_exprBinary; sym_exprUnary]; STATE 7478 [sym_exprParens; sym_exprBrackets;
   sym__literal; sym_literalString]; STATE 6664 [sym__literalString; sym_literalChar];
   STATE 7478 [sym_literalNumber]; STATE 7742 [sym__literalInt; sym__literalFloat];
   STATE 1380 [sym__ppIf]; STATE 6327 [sym__ppStatementBlock];
   STATE 11840 [aux_sym_labeledStatement_repeat1]; STATE 863 [aux_sym__statementsTr_repeat1];
   STATE 6664 [aux_sym_literalString_repeat1]; ACTIONS 397 [anon_sym_SEMI];
   ACTIONS 399 [anon_sym_LBRACK]; ACTIONS 401 [anon_sym_LPAREN];
   ACTIONS 403 [aux_sym__literalString_token1]; ACTIONS 405 [anon_sym_POUND];
   ACTIONS 407 [aux_sym__literalInt_token1]; ACTIONS 409 [aux_sym__literalInt_token2;
   aux_sym__literalInt_token3]; ACTIONS 407 [aux_sym__literalFloat_token1];
   ACTIONS 411 [aux_sym_ppUsesBlock_token1]; ACTIONS 413 [sym_kAdd; sym_kSub];
   ACTIONS 415 [sym_kAt]; ACTIONS 417 [sym_kTrue; sym_kFalse]; ACTIONS 419 [sym_labelNumber];
   ACTIONS 3 [sym__space]; ACTIONS 5 [sym_ppDirective]; ACTIONS 3 [sym_comment];
   ACTIONS 417 [sym_ppFragmentExpr]; ACTIONS 397 [sym_ppFragmentStmt];
   ACTIONS 403 [sym__literalStringMultiline]; ACTIONS 421 [sym_identifier];
   ACTIONS 423 [sym_kSpecialize]; ACTIONS 427 [sym_kAsm]; ACTIONS 429 [sym_kBegin];
   ACTIONS 431 [sym_kCase]; ACTIONS 433 [sym_kConst]; ACTIONS 3582 [sym_kEnd];
   ACTIONS 437 [sym_kFor]; ACTIONS 439 [sym_kFunction]; ACTIONS 441 [sym_kGoto];
   ACTIONS 443 [sym_kIf]; ACTIONS 445 [sym_kInherited]; ACTIONS 417 [sym_kNil];
   ACTIONS 415 [sym_kNot]; ACTIONS 439 [sym_kProcedure]; ACTIONS 447 [sym_kRaise];
   ACTIONS 449 [sym_kRepeat]; ACTIONS 451 [sym_kString]; ACTIONS 453 [sym_kTry];
   ACTIONS 455 [sym_kVar]; ACTIONS 457 [sym_kWhile]; ACTIONS 459 [sym_kWith]].

(** State 598. *)
Definition ts_parse_table_598 : parse_row :=
  [STATE 6213 [sym_if]; STATE 6327 [sym_ifElse; sym_while; sym_repeat; sym_for; sym_foreach;
   sym_try; sym_case; sym_block; sym_asm; sym_with; sym_raise; sym_statement; sym_goto;
   sym__statement]; STATE 14890 [sym_ifTr; sym_ifElseTr; sym_whileTr; sym_repeatTr; sym_forTr;
   sym_foreachTr; sym_tryTr; sym_caseTr]; STATE 14251 [sym_blockTr]; STATE 14890 [sym_asmTr;
   sym_withTr; sym_raiseTr; sym_statementTr; sym_gotoTr; sym__statementTr];
   STATE 13915 [sym_assignment]; STATE 11785 [sym_varAssignDef]; STATE 13915 [sym_varDef;
   sym_constDef]; STATE 6166 [sym_label]; STATE 14890 [sym__statementsTr]; STATE 8019 [sym__expr;
   sym_exprConditional]; STATE 7478 [sym__ref; sym_lambda; sym_inherited; sym_exprDot;
   sym_exprDeref; sym_exprAs; sym_exprTpl; sym_exprSubscript; sym_exprCall];
   STATE 8019 [sym_exprBinary; sym_exprUnary]; STATE 7478 [sym_exprParens; sym_exprBrackets;
   sym__literal; sym_literalString]; STATE 6664 [sym__literalString; sym_literalChar];
   STATE 7478 [sym_literalNumber]; STATE 7742 [sym__literalInt; sym__literalFloat];
   STATE 1380 [sym__ppIf]; STATE 6327 [sym__ppStatementBlock];
   STATE 11840 [aux_sym_labeledStatement_repeat1]; STATE 863 [aux_sym__statementsTr_repeat1];
   STATE 6664 [aux_sym_literalString_repeat1]; ACTIONS 397 [anon_sym_SEMI];
   ACTIONS 399 [anon_sym_LBRACK]; ACTIONS 401 [anon_sym_LPAREN];
   ACTIONS 403 [aux_sym__literalString_token1]; ACTIONS 405 [anon_sym_POUND];
   ACTIONS 407 [aux_sym__literalInt_token1]; ACTIONS 409 [aux_sym__literalInt_token2;
   aux_sym__literalInt_token3]; ACTIONS 407 [aux_sym__literalFloat_token1];
   ACTIONS 411 [aux_sym_ppUsesBlock_token1]; ACTIONS 413 [sym_kAdd; sym_kSub];
   ACTIONS 415 [sym_kAt]; ACTIONS 417 [sym_kTrue; sym_kFalse]; ACTIONS 419 [sym_labelNumber];
   ACTIONS 3 [sym__space]; ACTIONS 5 [sym_ppDirective]; ACTIONS 3 [sym_comment];
   ACTIONS 417 [sym_ppFragmentExpr]; ACTIONS 397 [sym_ppFragmentStmt];
   ACTIONS 403 [sym__literalStringMultiline]; ACTIONS 421 [sym_identifier];
   ACTIONS 423 [sym_kSpecialize]; ACTIONS 427 [sym_kAsm]; ACTIONS 429 [sym_kBegin];
   ACTIONS 431 [sym_kCase]; ACTIONS 433 [sym_kConst]; ACTIONS 3584 [sym_kEnd];
   ACTIONS 437 [sym_kFor]; ACTIONS 439 [sym_kFunction]; ACTIONS 441 [sym_kGoto];
   ACTIONS 443 [sym_kIf]; ACTIONS 445 [sym_kInherited]; ACTIONS 417 [sym_kNil];
   ACTIONS 415 [sym_kNot]; ACTIONS 439 [sym_kProcedure]; ACTIONS 447 [sym_kRaise];
   ACTIONS 449 [sym_kRepeat]; ACTIONS 451 [sym_kString]; ACTIONS 453 [sym_kTry];
   ACTIONS 455 [sym_kVar]; ACTIONS 457 [sym_kWhile]; ACTIONS 459 [sym_kWith]].

(** State 599. *)
Definition ts_parse_table_599 : parse_row :=
  [STATE 6213 [sym_if]; STATE 6327 [sym_ifElse; sym_while; sym_repeat; sym_for; sym_foreach;
   sym_try; sym_case; sym_block; sym_asm; sym_with; sym_raise; sym_statement; sym_goto;
   sym__statement]; STATE 14935 [sym_ifTr; sym_ifElseTr; sym_whileTr; sym_repeatTr; sym_forTr;
   sym_foreachTr; sym_tryTr; sym_caseTr]; STATE 14251 [sym_blockTr]; STATE 14935 [sym_asmTr;
   sym_withTr; sym_raiseTr; sym_statementTr; sym_gotoTr; sym__statementTr];
   STATE 13915 [sym_assignment]; STATE 11785 [sym_varAssignDef]; STATE 13915 [sym_varDef;
   sym_constDef]; STATE 6166 [sym_label]; STATE 14935 [sym__statementsTr]; STATE 8019 [sym__expr;
   sym_exprConditional]; STATE 7478 [sym__ref; sym_lambda; sym_inherited; sym_exprDot;
   sym_exprDeref; sym_exprAs; sym_exprTpl; sym_exprSubscript; sym_exprCall];
   STATE 8019 [sym_exprBinary; sym_exprUnary]; STATE 7478 [sym_exprParens; sym_exprBrackets;
   sym__literal; sym_literalString]; STATE 6664 [sym__literalString; sym_literalChar];
   STATE 7478 [sym_literalNumber]; STATE 7742 [sym__literalInt; sym__literalFloat];
   STATE 1380 [sym__ppIf]; STATE 6327 [sym__ppStatementBlock];
   STATE 11840 [aux_sym_labeledStatement_repeat1]; STATE 863 [aux_sym__statementsTr_repeat1];
   STATE 6664 [aux_sym_literalString_repeat1]; ACTIONS 397 [anon_sym_SEMI];
   ACTIONS 399 [anon_sym_LBRACK]; ACTIONS 401 [anon_sym_LPAREN];
   ACTIONS 403 [aux_sym__literalString_token1]; ACTIONS 405 [anon_sym_POUND];
   ACTIONS 407 [aux_sym__literalInt_token1]; ACTIONS 409 [aux_sym__literalInt_token2;
   aux_sym__literalInt_token3]; ACTIONS 407 [aux_sym__literalFloat_token1];
   ACTIONS 411 [aux_sym_ppUsesBlock_token1]; ACTIONS 413 [sym_kAdd; sym_kSub];
   ACTIONS 415 [sym_kAt]; ACTIONS 417 [sym_kTrue; sym_kFalse]; ACTIONS 419 [sym_labelNumber];
   ACTIONS 3 [sym__space]; ACTIONS 5 [sym_ppDirective]; ACTIONS 3 [sym_comment];
   ACTIONS 417 [sym_ppFragmentExpr]; ACTIONS 397 [sym_ppFragmentStmt];
   ACTIONS 403 [sym__literalStringMultiline]; ACTIONS 421 [sym_identifier];
   ACTIONS 423 [sym_kSpecialize]; ACTIONS 427 [sym_kAsm]; ACTIONS 429 [sym_kBegin];
   ACTIONS 431 [sym_kCase]; ACTIONS 433 [sym_kConst]; ACTIONS 3586 [sym_kEnd];
   ACTIONS 437 [sym_kFor]; ACTIONS 439 [sym_kFunction]; ACTIONS 441 [sym_kGoto];
   ACTIONS 443 [sym_kIf]; ACTIONS 445 [sym_kInherited]; ACTIONS 417 [sym_kNil];
   ACTIONS 415 [sym_kNot]; ACTIONS 439 [sym_kProcedure]; ACTIONS 447 [sym_kRaise];
   ACTIONS 449 [sym_kRepeat]; ACTIONS 451 [sym_kString]; ACTIONS 453 [sym_kTry];
   ACTIONS 455 [sym_kVar]; ACTIONS 457 [sym_kWhile]; ACTIONS 459 [sym_kWith]].

(** State 600. *)
Definition ts_parse_table_600 : parse_row :=
  [STATE 6213 [sym_if]; STATE 6327 [sym_ifElse; sym_while; sym_repeat; sym_for; sym_foreach;
   sym_try; sym_case; sym_block; sym_asm; sym_with; sym_raise; sym_statement; sym_goto;
   sym__statement]; STATE 14987 [sym_ifTr; sym_ifElseTr; sym_whileTr; sym_repeatTr; sym_forTr;
   sym_foreachTr; sym_tryTr; sym_caseTr]; STATE 14251 [sym_blockTr]; STATE 14987 [sym_asmTr;
   sym_withTr; sym_raiseTr; sym_statementTr; sym_gotoTr; sym__statementTr];
   STATE 13915 [sym_assignment]; STATE 11785 [sym_varAssignDef]; STATE 13915 [sym_varDef;
   sym_constDef]; STATE 6166 [sym_label]; STATE 14987 [sym__statementsTr]; STATE 8019 [sym__expr;
   sym_exprConditional]; STATE 7478 [sym__ref; sym_lambda; sym_inherited; sym_exprDot;
   sym_exprDeref; sym_exprAs; sym_exprTpl; sym_exprSubscript; sym_exprCall];
   STATE 8019 [sym_exprBinary; sym_exprUnary]; STATE 7478 [sym_exprParens; sym_exprBrackets;
   sym__literal; sym_literalString]; STATE 6664 [sym__literalString; sym_literalChar];
   STATE 7478 [sym_literalNumber]; STATE 7742 [sym__literalInt; sym__literalFloat];
   STATE 1380 [sym__ppIf]; STATE 6327 [sym__ppStatementBlock];
   STATE 11840 [aux_sym_labeledStatement_repeat1]; STATE 863 [aux_sym__statementsTr_repeat1];
   STATE 6664 [aux_sym_literalString_repeat1]; ACTIONS 397 [anon_sym_SEMI];
   ACTIONS 399 [anon_sym_LBRACK]; ACTIONS 401 [anon_sym_LPAREN];
   ACTIONS 403 [aux_sym__literalString_token1]; ACTIONS 405 [anon_sym_POUND];
   ACTIONS 407 [aux_sym__literalInt_token1]; ACTIONS 409 [aux_sym__literalInt_token2;
   aux_sym__literalInt_token3]; ACTIONS 407 [aux_sym__literalFloat_token1];
   ACTIONS 411 [aux_sym_ppUsesBlock_token1]; ACTIONS 413 [sym_kAdd; sym_kSub];
   ACTIONS 415 [sym_kAt]; ACTIONS 417 [sym_kTrue; sym_kFalse]; ACTIONS 419 [sym_labelNumber];
   ACTIONS 3 [sym__space]; ACTIONS 5 [sym_ppDirective]; ACTIONS 3 [sym_comment];
   ACTIONS 417 [sym_ppFragmentExpr]; ACTIONS 397 [sym_ppFragmentStmt];
   ACTIONS 403 [sym__literalStringMultiline]; ACTIONS 421 [sym_identifier];
   ACTIONS 423 [sym_kSpecialize]; ACTIONS 427 [sym_kAsm]; ACTIONS 429 [sym_kBegin];
   ACTIONS 431 [sym_kCase]; ACTIONS 433 [sym_kConst]; ACTIONS 3588 [sym_kEnd];
   ACTIONS 437 [sym_kFor]; ACTIONS 439 [sym_kFunction]; ACTIONS 441 [sym_kGoto];
   ACTIONS 443 [sym_kIf]; ACTIONS 445 [sym_kInherited]; ACTIONS 417 [sym_kNil];
   ACTIONS 415 [sym_kNot]; ACTIONS 439 [sym_kProcedure]; ACTIONS 447 [sym_kRaise];
   ACTIONS 449 [sym_kRepeat]; ACTIONS 451 [sym_kString]; ACTIONS 453 [sym_kTry];
   ACTIONS 455 [sym_kVar]; ACTIONS 457 [sym_kWhile]; ACTIONS 459 [sym_kWith]].

(** State 601. *)
Definition ts_parse_table_601 : parse_row :=
  [STATE 6213 [sym_if]; STATE 6327 [sym_ifElse; sym_while; sym_repeat; sym_for; sym_foreach;
   sym_try; sym_case; sym_block; sym_asm; sym_with; sym_raise; sym_statement; sym_goto;
   sym__statement]; STATE 15034 [sym_ifTr; sym_ifElseTr; sym_whileTr; sym_repeatTr; sym_forTr;
   sym_foreachTr; sym_tryTr; sym_caseTr]; STATE 14251 [sym_blockTr]; STATE 15034 [sym_asmTr;
   sym_withTr; sym_raiseTr; sym_statementTr; sym_gotoTr; sym__statementTr];
   STATE 13915 [sym_assignment]; STATE 11785 [sym_varAssignDef]; STATE 13915 [sym_varDef;
   sym_constDef]; STATE 6166 [sym_label]; STATE 15034 [sym__statementsTr]; STATE 8019 [sym__expr;
   sym_exprConditional]; STATE 7478 [sym__ref; sym_lambda; sym_inherited; sym_exprDot;
   sym_exprDeref; sym_exprAs; sym_exprTpl; sym_exprSubscript; sym_exprCall];
   STATE 8019 [sym_exprBinary; sym_exprUnary]; STATE 7478 [sym_exprParens; sym_exprBrackets;
   sym__literal; sym_literalString]; STATE 6664 [sym__literalString; sym_literalChar];
   STATE 7478 [sym_literalNumber]; STATE 7742 [sym__literalInt; sym__literalFloat];
   STATE 1380 [sym__ppIf]; STATE 6327 [sym__ppStatementBlock];
   STATE 11840 [aux_sym_labeledStatement_repeat1]; STATE 863 [aux_sym__statementsTr_repeat1];
   STATE 6664 [aux_sym_literalString_repeat1]; ACTIONS 397 [anon_sym_SEMI];
   ACTIONS 399 [anon_sym_LBRACK]; ACTIONS 401 [anon_sym_LPAREN];
   ACTIONS 403 [aux_sym__literalString_token1]; ACTIONS 405 [anon_sym_POUND];
   ACTIONS 407 [aux_sym__literalInt_token1]; ACTIONS 409 [aux_sym__literalInt_token2;
   aux_sym__literalInt_token3]; ACTIONS 407 [aux_sym__literalFloat_token1];
   ACTIONS 411 [aux_sym_ppUsesBlock_token1]; ACTIONS 413 [sym_kAdd; sym_kSub];
   ACTIONS 415 [sym_kAt]; ACTIONS 417 [sym_kTrue; sym_kFalse]; ACTIONS 419 [sym_labelNumber];
   ACTIONS 3 [sym__space]; ACTIONS 5 [sym_ppDirective]; ACTIONS 3 [sym_comment];
   ACTIONS 417 [sym_ppFragmentExpr]; ACTIONS 397 [sym_ppFragmentStmt];
   ACTIONS 403 [sym__literalStringMultiline]; ACTIONS 421 [sym_identifier];
   ACTIONS 423 [sym_kSpecialize]; ACTIONS 427 [sym_kAsm]; ACTIONS 429 [sym_kBegin];
   ACTIONS 431 [sym_kCase]; ACTIONS 433 [sym_kConst]; ACTIONS 3590 [sym_kEnd];
   ACTIONS 437 [sym_kFor]; ACTIONS 439 [sym_kFunction]; ACTIONS 441 [sym_kGoto];
   ACTIONS 443 [sym_kIf]; ACTIONS 445 [sym_kInherited]; ACTIONS 417 [sym_kNil];
   ACTIONS 415 [sym_kNot]; ACTIONS 439 [sym_kProcedure]; ACTIONS 447 [sym_kRaise];
   ACTIONS 449 [sym_kRepeat]; ACTIONS 451 [sym_kString]; ACTIONS 453 [sym_kTry];
   ACTIONS 455 [sym_kVar]; ACTIONS 457 [sym_kWhile]; ACTIONS 459 [sym_kWith]].

(** State 602. *)
Definition ts_parse_table_602 : parse_row :=
  [STATE 6213 [sym_if]; STATE 6327 [sym_ifElse; sym_while; sym_repeat; sym_for; sym_foreach;
   sym_try; sym_case; sym_block; sym_asm; sym_with; sym_raise; sym_statement; sym_goto;
   sym__statement]; STATE 15090 [sym_ifTr; sym_ifElseTr; sym_whileTr; sym_repeatTr; sym_forTr;
   sym_foreachTr; sym_tryTr; sym_caseTr]; STATE 14251 [sym_blockTr]; STATE 15090 [sym_asmTr;
   sym_withTr; sym_raiseTr; sym_statementTr; sym_gotoTr; sym__statementTr];
   STATE 13915 [sym_assignment]; STATE 11785 [sym_varAssignDef]; STATE 13915 [sym_varDef;
   sym_constDef]; STATE 6166 [sym_label]; STATE 15090 [sym__statementsTr]; STATE 8019 [sym__expr;
   sym_exprConditional]; STATE 7478 [sym__ref; sym_lambda; sym_inherited; sym_exprDot;
   sym_exprDeref; sym_exprAs; sym_exprTpl; sym_exprSubscript; sym_exprCall];
   STATE 8019 [sym_exprBinary; sym_exprUnary]; STATE 7478 [sym_exprParens; sym_exprBrackets;
   sym__literal; sym_literalString]; STATE 6664 [sym__literalString; sym_literalChar];
   STATE 7478 [sym_literalNumber]; STATE 7742 [sym__literalInt; sym__literalFloat];
   STATE 1380 [sym__ppIf]; STATE 6327 [sym__ppStatementBlock];
   STATE 11840 [aux_sym_labeledStatement_repeat1]; STATE 863 [aux_sym__statementsTr_repeat1];
   STATE 6664 [aux_sym_literalString_repeat1]; ACTIONS 397 [anon_sym_SEMI];
   ACTIONS 399 [anon_sym_LBRACK]; ACTIONS 401 [anon_sym_LPAREN];
   ACTIONS 403 [aux_sym__literalString_token1]; ACTIONS 405 [anon_sym_POUND];
   ACTIONS 407 [aux_sym__literalInt_token1]; ACTIONS 409 [aux_sym__literalInt_token2;
   aux_sym__literalInt_token3]; ACTIONS 407 [aux_sym__literalFloat_token1];
   ACTIONS 411 [aux_sym_ppUsesBlock_token1]; ACTIONS 413 [sym_kAdd; sym_kSub];
   ACTIONS 415 [sym_kAt]; ACTIONS 417 [sym_kTrue; sym_kFalse]; ACTIONS 419 [sym_labelNumber];
   ACTIONS 3 [sym__space]; ACTIONS 5 [sym_ppDirective]; ACTIONS 3 [sym_comment];
   ACTIONS 417 [sym_ppFragmentExpr]; ACTIONS 397 [sym_ppFragmentStmt];
   ACTIONS 403 [sym__literalStringMultiline]; ACTIONS 421 [sym_identifier];
   ACTIONS 423 [sym_kSpecialize]; ACTIONS 427 [sym_kAsm]; ACTIONS 429 [sym_kBegin];
   ACTIONS 431 [sym_kCase]; ACTIONS 433 [sym_kConst]; ACTIONS 3592 [sym_kEnd];
   ACTIONS 437 [sym_kFor]; ACTIONS 439 [sym_kFunction]; ACTIONS 441 [sym_kGoto];
   ACTIONS 443 [sym_kIf]; ACTIONS 445 [sym_kInherited]; ACTIONS 417 [sym_kNil];
   ACTIONS 415 [sym_kNot]; ACTIONS 439 [sym_kProcedure]; ACTIONS 447 [sym_kRaise];
   ACTIONS 449 [sym_kRepeat]; ACTIONS 451 [sym_kString]; ACTIONS 453 [sym_kTry];
   ACTIONS 455 [sym_kVar]; ACTIONS 457 [sym_kWhile]; ACTIONS 459 [sym_kWith]].

(** State 603. *)
Definition ts_parse_table_603 : parse_row :=
  [STATE 6213 [sym_if]; STATE 6327 [sym_ifElse; sym_while; sym_repeat; sym_for; sym_foreach;
   sym_try; sym_case; sym_block; sym_asm; sym_with; sym_raise; sym_statement; sym_goto;
   sym__statement]; STATE 15156 [sym_ifTr; sym_ifElseTr; sym_whileTr; sym_repeatTr; sym_forTr;
   sym_foreachTr; sym_tryTr; sym_caseTr]; STATE 14251 [sym_blockTr]; STATE 15156 [sym_asmTr;
   sym_withTr; sym_raiseTr; sym_statementTr; sym_gotoTr; sym__statementTr];
   STATE 13915 [sym_assignment]; STATE 11785 [sym_varAssignDef]; STATE 13915 [sym_varDef;
   sym_constDef]; STATE 6166 [sym_label]; STATE 15156 [sym__statementsTr]; STATE 8019 [sym__expr;
   sym_exprConditional]; STATE 7478 [sym__ref; sym_lambda; sym_inherited; sym_exprDot;
   sym_exprDeref; sym_exprAs; sym_exprTpl; sym_exprSubscript; sym_exprCall];
   STATE 8019 [sym_exprBinary; sym_exprUnary]; STATE 7478 [sym_exprParens; sym_exprBrackets;
   sym__literal; sym_literalString]; STATE 6664 [sym__literalString; sym_literalChar];
   STATE 7478 [sym_literalNumber]; STATE 7742 [sym__literalInt; sym__literalFloat];
   STATE 1380 [sym__ppIf]; STATE 6327 [sym__ppStatementBlock];
   STATE 11840 [aux_sym_labeledStatement_repeat1]; STATE 863 [aux_sym__statementsTr_repeat1];
   STATE 6664 [aux_sym_literalString_repeat1]; ACTIONS 397 [anon_sym_SEMI];
   ACTIONS 399 [anon_sym_LBRACK]; ACTIONS 401 [anon_sym_LPAREN];
   ACTIONS 403 [aux_sym__literalString_token1]; ACTIONS 405 [anon_sym_POUND];
   ACTIONS 407 [aux_sym__literalInt_token1]; ACTIONS 409 [aux_sym__literalInt_token2;
   aux_sym__literalInt_token3]; ACTIONS 407 [aux_sym__literalFloat_token1];
   ACTIONS 411 [aux_sym_ppUsesBlock_token1]; ACTIONS 413 [sym_kAdd; sym_kSub];
   ACTIONS 415 [sym_kAt]; ACTIONS 417 [sym_kTrue; sym_kFalse]; ACTIONS 419 [sym_labelNumber];
   ACTIONS 3 [sym__space]; ACTIONS 5 [sym_ppDirective]; ACTIONS 3 [sym_comment];
   ACTIONS 417 [sym_ppFragmentExpr]; ACTIONS 397 [sym_ppFragmentStmt];
   ACTIONS 403 [sym__literalStringMultiline]; ACTIONS 421 [sym_identifier];
   ACTIONS 423 [sym_kSpecialize]; ACTIONS 427 [sym_kAsm]; ACTIONS 429 [sym_kBegin];
   ACTIONS 431 [sym_kCase]; ACTIONS 433 [sym_kConst]; ACTIONS 3594 [sym_kEnd];
   ACTIONS 437 [sym_kFor]; ACTIONS 439 [sym_kFunction]; ACTIONS 441 [sym_kGoto];
   ACTIONS 443 [sym_kIf]; ACTIONS 445 [sym_kInherited]; ACTIONS 417 [sym_kNil];
   ACTIONS 415 [sym_kNot]; ACTIONS 439 [sym_kProcedure]; ACTIONS 447 [sym_kRaise];
   ACTIONS 449 [sym_kRepeat]; ACTIONS 451 [sym_kString]; ACTIONS 453 [sym_kTry];
   ACTIONS 455 [sym_kVar]; ACTIONS 457 [sym_kWhile]; ACTIONS 459 [sym_kWith]].

(** State 604. *)
Definition ts_parse_table_604 : parse_row :=
  [STATE 6213 [sym_if]; STATE 6327 [sym_ifElse; sym_while; sym_repeat; sym_for; sym_foreach;
   sym_try; sym_case; sym_block; sym_asm; sym_with; sym_raise; sym_statement; sym_goto;
   sym__statement]; STATE 15198 [sym_ifTr; sym_ifElseTr; sym_whileTr; sym_repeatTr; sym_forTr;
   sym_foreachTr; sym_tryTr; sym_caseTr]; STATE 14251 [sym_blockTr]; STATE 15198 [sym_asmTr;
   sym_withTr; sym_raiseTr; sym_statementTr; sym_gotoTr; sym__statementTr];
   STATE 13915 [sym_assignment]; STATE 11785 [sym_varAssignDef]; STATE 13915 [sym_varDef;
   sym_constDef]; STATE 6166 [sym_label]; STATE 15198 [sym__statementsTr]; STATE 8019 [sym__expr;
   sym_exprConditional]; STATE 7478 [sym__ref; sym_lambda; sym_inherited; sym_exprDot;
   sym_exprDeref; sym_exprAs; sym_exprTpl; sym_exprSubscript; sym_exprCall];
   STATE 8019 [sym_exprBinary; sym_exprUnary]; STATE 7478 [sym_exprParens; sym_exprBrackets;
   sym__literal; sym_literalString]; STATE 6664 [sym__literalString; sym_literalChar];
   STATE 7478 [sym_literalNumber]; STATE 7742 [sym__literalInt; sym__literalFloat];
   STATE 1380 [sym__ppIf]; STATE 6327 [sym__ppStatementBlock];
   STATE 11840 [aux_sym_labeledStatement_repeat1]; STATE 863 [aux_sym__statementsTr_repeat1];
   STATE 6664 [aux_sym_literalString_repeat1]; ACTIONS 397 [anon_sym_SEMI];
   ACTIONS 399 [anon_sym_LBRACK]; ACTIONS 401 [anon_sym_LPAREN];
   ACTIONS 403 [aux_sym__literalString_token1]; ACTIONS 405 [anon_sym_POUND];
   ACTIONS 407 [aux_sym__literalInt_token1]; ACTIONS 409 [aux_sym__literalInt_token2;
   aux_sym__literalInt_token3]; ACTIONS 407 [aux_sym__literalFloat_token1];
   ACTIONS 411 [aux_sym_ppUsesBlock_token1]; ACTIONS 413 [sym_kAdd; sym_kSub];
   ACTIONS 415 [sym_kAt]; ACTIONS 417 [sym_kTrue; sym_kFalse]; ACTIONS 419 [sym_labelNumber];
   ACTIONS 3 [sym__space]; ACTIONS 5 [sym_ppDirective]; ACTIONS 3 [sym_comment];
   ACTIONS 417 [sym_ppFragmentExpr]; ACTIONS 397 [sym_ppFragmentStmt];
   ACTIONS 403 [sym__literalStringMultiline]; ACTIONS 421 [sym_identifier];
   ACTIONS 423 [sym_kSpecialize]; ACTIONS 427 [sym_kAsm]; ACTIONS 429 [sym_kBegin];
   ACTIONS 431 [sym_kCase]; ACTIONS 433 [sym_kConst]; ACTIONS 3596 [sym_kEnd];
   ACTIONS 437 [sym_kFor]; ACTIONS 439 [sym_kFunction]; ACTIONS 441 [sym_kGoto];
   ACTIONS 443 [sym_kIf]; ACTIONS 445 [sym_kInherited]; ACTIONS 417 [sym_kNil];
   ACTIONS 415 [sym_kNot]; ACTIONS 439 [sym_kProcedure]; ACTIONS 447 [sym_kRaise];
   ACTIONS 449 [sym_kRepeat]; ACTIONS 451 [sym_kString]; ACTIONS 453 [sym_kTry];
   ACTIONS 455 [sym_kVar]; ACTIONS 457 [sym_kWhile]; ACTIONS 459 [sym_kWith]].

(** State 605. *)
Definition ts_parse_table_605 : parse_row :=
  [STATE 6213 [sym_if]; STATE 6327 [sym_ifElse; sym_while; sym_repeat; sym_for; sym_foreach;
   sym_try; sym_case; sym_block; sym_asm; sym_with; sym_raise; sym_statement; sym_goto;
   sym__statement]; STATE 15253 [sym_ifTr; sym_ifElseTr; sym_whileTr; sym_repeatTr; sym_forTr;
   sym_foreachTr; sym_tryTr; sym_caseTr]; STATE 14251 [sym_blockTr]; STATE 15253 [sym_asmTr;
   sym_withTr; sym_raiseTr; sym_statementTr; sym_gotoTr; sym__statementTr];
   STATE 13915 [sym_assignment]; STATE 11785 [sym_varAssignDef]; STATE 13915 [sym_varDef;
   sym_constDef]; STATE 6166 [sym_label]; STATE 15253 [sym__statementsTr]; STATE 8019 [sym__expr;
   sym_exprConditional]; STATE 7478 [sym__ref; sym_lambda; sym_inherited; sym_exprDot;
   sym_exprDeref; sym_exprAs; sym_exprTpl; sym_exprSubscript; sym_exprCall];
   STATE 8019 [sym_exprBinary; sym_exprUnary]; STATE 7478 [sym_exprParens; sym_exprBrackets;
   sym__literal; sym_literalString]; STATE 6664 [sym__literalString; sym_literalChar];
   STATE 7478 [sym_literalNumber]; STATE 7742 [sym__literalInt; sym__literalFloat];
   STATE 1380 [sym__ppIf]; STATE 6327 [sym__ppStatementBlock];
   STATE 11840 [aux_sym_labeledStatement_repeat1]; STATE 863 [aux_sym__statementsTr_repeat1];
   STATE 6664 [aux_sym_literalString_repeat1]; ACTIONS 397 [anon_sym_SEMI];
   ACTIONS 399 [anon_sym_LBRACK]; ACTIONS 401 [anon_sym_LPAREN];
   ACTIONS 403 [aux_sym__literalString_token1]; ACTIONS 405 [anon_sym_POUND];
   ACTIONS 407 [aux_sym__literalInt_token1]; ACTIONS 409 [aux_sym__literalInt_token2;
   aux_sym__literalInt_token3]; ACTIONS 407 [aux_sym__literalFloat_token1];
   ACTIONS 411 [aux_sym_ppUsesBlock_token1]; ACTIONS 413 [sym_kAdd; sym_kSub];
   ACTIONS 415 [sym_kAt]; ACTIONS 417 [sym_kTrue; sym_kFalse]; ACTIONS 419 [sym_labelNumber];
   ACTIONS 3 [sym__space]; ACTIONS 5 [sym_ppDirective]; ACTIONS 3 [sym_comment];
   ACTIONS 417 [sym_ppFragmentExpr]; ACTIONS 397 [sym_ppFragmentStmt];
   ACTIONS 403 [sym__literalStringMultiline]; ACTIONS 421 [sym_identifier];
   ACTIONS 423 [sym_kSpecialize]; ACTIONS 427 [sym_kAsm]; ACTIONS 429 [sym_kBegin];
   ACTIONS 431 [sym_kCase]; ACTIONS 433 [sym_kConst]; ACTIONS 3598 [sym_kEnd];
   ACTIONS 437 [sym_kFor]; ACTIONS 439 [sym_kFunction]; ACTIONS 441 [sym_kGoto];
   ACTIONS 443 [sym_kIf]; ACTIONS 445 [sym_kInherited]; ACTIONS 417 [sym_kNil];
   ACTIONS 415 [sym_kNot]; ACTIONS 439 [sym_kProcedure]; ACTIONS 447 [sym_kRaise];
   ACTIONS 449 [sym_kRepeat]; ACTIONS 451 [sym_kString]; ACTIONS 453 [sym_kTry];
   ACTIONS 455 [sym_kVar]; ACTIONS 457 [sym_kWhile]; ACTIONS 459 [sym_kWith]].

(** State 606. *)
Definition ts_parse_table_606 : parse_row :=
  [STATE 6213 [sym_if]; STATE 6327 [sym_ifElse; sym_while; sym_repeat; sym_for; sym_foreach;
   sym_try; sym_case; sym_block; sym_asm; sym_with; sym_raise; sym_statement; sym_goto;
   sym__statement]; STATE 15306 [sym_ifTr; sym_ifElseTr; sym_whileTr; sym_repeatTr; sym_forTr;
   sym_foreachTr; sym_tryTr; sym_caseTr]; STATE 14251 [sym_blockTr]; STATE 15306 [sym_asmTr;
   sym_withTr; sym_raiseTr; sym_statementTr; sym_gotoTr; sym__statementTr];
   STATE 13915 [sym_assignment]; STATE 11785 [sym_varAssignDef]; STATE 13915 [sym_varDef;
   sym_constDef]; STATE 6166 [sym_label]; STATE 15306 [sym__statementsTr]; STATE 8019 [sym__expr;
   sym_exprConditional]; STATE 7478 [sym__ref; sym_lambda; sym_inherited; sym_exprDot;
   sym_exprDeref; sym_exprAs; sym_exprTpl; sym_exprSubscript; sym_exprCall];
   STATE 8019 [sym_exprBinary; sym_exprUnary]; STATE 7478 [sym_exprParens; sym_exprBrackets;
   sym__literal; sym_literalString]; STATE 6664 [sym__literalString; sym_literalChar];
   STATE 7478 [sym_literalNumber]; STATE 7742 [sym__literalInt; sym__literalFloat];
   STATE 1380 [sym__ppIf]; STATE 6327 [sym__ppStatementBlock];
   STATE 11840 [aux_sym_labeledStatement_repeat1]; STATE 863 [aux_sym__statementsTr_repeat1];
   STATE 6664 [aux_sym_literalString_repeat1]; ACTIONS 397 [anon_sym_SEMI];
   ACTIONS 399 [anon_sym_LBRACK]; ACTIONS 401 [anon_sym_LPAREN];
   ACTIONS 403 [aux_sym__literalString_token1]; ACTIONS 405 [anon_sym_POUND];
   ACTIONS 407 [aux_sym__literalInt_token1]; ACTIONS 409 [aux_sym__literalInt_token2;
   aux_sym__literalInt_token3]; ACTIONS 407 [aux_sym__literalFloat_token1];
   ACTIONS 411 [aux_sym_ppUsesBlock_token1]; ACTIONS 413 [sym_kAdd; sym_kSub];
   ACTIONS 415 [sym_kAt]; ACTIONS 417 [sym_kTrue; sym_kFalse]; ACTIONS 419 [sym_labelNumber];
   ACTIONS 3 [sym__space]; ACTIONS 5 [sym_ppDirective]; ACTIONS 3 [sym_comment];
   ACTIONS 417 [sym_ppFragmentExpr]; ACTIONS 397 [sym_ppFragmentStmt];
   ACTIONS 403 [sym__literalStringMultiline]; ACTIONS 421 [sym_identifier];
   ACTIONS 423 [sym_kSpecialize]; ACTIONS 427 [sym_kAsm]; ACTIONS 429 [sym_kBegin];
   ACTIONS 431 [sym_kCase]; ACTIONS 433 [sym_kConst]; ACTIONS 3600 [sym_kEnd];
   ACTIONS 437 [sym_kFor]; ACTIONS 439 [sym_kFunction]; ACTIONS 441 [sym_kGoto];
   ACTIONS 443 [sym_kIf]; ACTIONS 445 [sym_kInherited]; ACTIONS 417 [sym_kNil];
   ACTIONS 415 [sym_kNot]; ACTIONS 439 [sym_kProcedure]; ACTIONS 447 [sym_kRaise];
   ACTIONS 449 [sym_kRepeat]; ACTIONS 451 [sym_kString]; ACTIONS 453 [sym_kTry];
   ACTIONS 455 [sym_kVar]; ACTIONS 457 [sym_kWhile]; ACTIONS 459 [sym_kWith]].

(** State 607. *)
Definition ts_parse_table_607 : parse_row :=
  [STATE 6213 [sym_if]; STATE 6327 [sym_ifElse; sym_while; sym_repeat; sym_for; sym_foreach;
   sym_try; sym_case; sym_block; sym_asm; sym_with; sym_raise; sym_statement; sym_goto;
   sym__statement]; STATE 15367 [sym_ifTr; sym_ifElseTr; sym_whileTr; sym_repeatTr; sym_forTr;
   sym_foreachTr; sym_tryTr; sym_caseTr]; STATE 14251 [sym_blockTr]; STATE 15367 [sym_asmTr;
   sym_withTr; sym_raiseTr; sym_statementTr; sym_gotoTr; sym__statementTr];
   STATE 13915 [sym_assignment]; STATE 11785 [sym_varAssignDef]; STATE 13915 [sym_varDef;
   sym_constDef]; STATE 6166 [sym_label]; STATE 15367 [sym__statementsTr]; STATE 8019 [sym__expr;
   sym_exprConditional]; STATE 7478 [sym__ref; sym_lambda; sym_inherited; sym_exprDot;
   sym_exprDeref; sym_exprAs; sym_exprTpl; sym_exprSubscript; sym_exprCall];
   STATE 8019 [sym_exprBinary; sym_exprUnary]; STATE 7478 [sym_exprParens; sym_exprBrackets;
   sym__literal; sym_literalString]; STATE 6664 [sym__literalString; sym_literalChar];
   STATE 7478 [sym_literalNumber]; STATE 7742 [sym__literalInt; sym__literalFloat];
   STATE 1380 [sym__ppIf]; STATE 6327 [sym__ppStatementBlock];
   STATE 11840 [aux_sym_labeledStatement_repeat1]; STATE 863 [aux_sym__statementsTr_repeat1];
   STATE 6664 [aux_sym_literalString_repeat1]; ACTIONS 397 [anon_sym_SEMI];
   ACTIONS 399 [anon_sym_LBRACK]; ACTIONS 401 [anon_sym_LPAREN];
   ACTIONS 403 [aux_sym__literalString_token1]; ACTIONS 405 [anon_sym_POUND];
   ACTIONS 407 [aux_sym__literalInt_token1]; ACTIONS 409 [aux_sym__literalInt_token2;
   aux_sym__literalInt_token3]; ACTIONS 407 [aux_sym__literalFloat_token1];
   ACTIONS 411 [aux_sym_ppUsesBlock_token1]; ACTIONS 413 [sym_kAdd; sym_kSub];
   ACTIONS 415 [sym_kAt]; ACTIONS 417 [sym_kTrue; sym_kFalse]; ACTIONS 419 [sym_labelNumber];
   ACTIONS 3 [sym__space]; ACTIONS 5 [sym_ppDirective]; ACTIONS 3 [sym_comment];
   ACTIONS 417 [sym_ppFragmentExpr]; ACTIONS 397 [sym_ppFragmentStmt];
   ACTIONS 403 [sym__literalStringMultiline]; ACTIONS 421 [sym_identifier];
   ACTIONS 423 [sym_kSpecialize]; ACTIONS 427 [sym_kAsm]; ACTIONS 429 [sym_kBegin];
   ACTIONS 431 [sym_kCase]; ACTIONS 433 [sym_kConst]; ACTIONS 3602 [sym_kEnd];
   ACTIONS 437 [sym_kFor]; ACTIONS 439 [sym_kFunction]; ACTIONS 441 [sym_kGoto];
   ACTIONS 443 [sym_kIf]; ACTIONS 445 [sym_kInherited]; ACTIONS 417 [sym_kNil];
   ACTIONS 415 [sym_kNot]; ACTIONS 439 [sym_kProcedure]; ACTIONS 447 [sym_kRaise];
   ACTIONS 449 [sym_kRepeat]; ACTIONS 451 [sym_kString]; ACTIONS 453 [sym_kTry];
   ACTIONS 455 [sym_kVar]; ACTIONS 457 [sym_kWhile]; ACTIONS 459 [sym_kWith]].

(** State 608. *)
Definition ts_parse_table_608 : parse_row :=
  [STATE 6213 [sym_if]; STATE 6327 [sym_ifElse; sym_while; sym_repeat; sym_for; sym_foreach;
   sym_try; sym_case; sym_block; sym_asm; sym_with; sym_raise; sym_statement; sym_goto;
   sym__statement]; STATE 15424 [sym_ifTr; sym_ifElseTr; sym_whileTr; sym_repeatTr; sym_forTr;
   sym_foreachTr; sym_tryTr; sym_caseTr]; STATE 14251 [sym_blockTr]; STATE 15424 [sym_asmTr;
   sym_withTr; sym_raiseTr; sym_statementTr; sym_gotoTr; sym__statementTr];
   STATE 13915 [sym_assignment]; STATE 11785 [sym_varAssignDef]; STATE 13915 [sym_varDef;
   sym_constDef]; STATE 6166 [sym_label]; STATE 15424 [sym__statementsTr]; STATE 8019 [sym__expr;
   sym_exprConditional]; STATE 7478 [sym__ref; sym_lambda; sym_inherited; sym_exprDot;
   sym_exprDeref; sym_exprAs; sym_exprTpl; sym_exprSubscript; sym_exprCall];
   STATE 8019 [sym_exprBinary; sym_exprUnary]; STATE 7478 [sym_exprParens; sym_exprBrackets;
   sym__literal; sym_literalString]; STATE 6664 [sym__literalString; sym_literalChar];
   STATE 7478 [sym_literalNumber]; STATE 7742 [sym__literalInt; sym__literalFloat];
   STATE 1380 [sym__ppIf]; STATE 6327 [sym__ppStatementBlock];
   STATE 11840 [aux_sym_labeledStatement_repeat1]; STATE 863 [aux_sym__statementsTr_repeat1];
   STATE 6664 [aux_sym_literalString_repeat1]; ACTIONS 397 [anon_sym_SEMI];
   ACTIONS 399 [anon_sym_LBRACK]; ACTIONS 401 [anon_sym_LPAREN];
   ACTIONS 403 [aux_sym__literalString_token1]; ACTIONS 405 [anon_sym_POUND];
   ACTIONS 407 [aux_sym__literalInt_token1]; ACTIONS 409 [aux_sym__literalInt_token2;
   aux_sym__literalInt_token3]; ACTIONS 407 [aux_sym__literalFloat_token1];
   ACTIONS 411 [aux_sym_ppUsesBlock_token1]; ACTIONS 413 [sym_kAdd; sym_kSub];
   ACTIONS 415 [sym_kAt]; ACTIONS 417 [sym_kTrue; sym_kFalse]; ACTIONS 419 [sym_labelNumber];
   ACTIONS 3 [sym__space]; ACTIONS 5 [sym_ppDirective]; ACTIONS 3 [sym_comment];
   ACTIONS 417 [sym_ppFragmentExpr]; ACTIONS 397 [sym_ppFragmentStmt];
   ACTIONS 403 [sym__literalStringMultiline]; ACTIONS 421 [sym_identifier];
   ACTIONS 423 [sym_kSpecialize]; ACTIONS 427 [sym_kAsm]; ACTIONS 429 [sym_kBegin];
   ACTIONS 431 [sym_kCase]; ACTIONS 433 [sym_kConst]; ACTIONS 3604 [sym_kEnd];
   ACTIONS 437 [sym_kFor]; ACTIONS 439 [sym_kFunction]; ACTIONS 441 [sym_kGoto];
   ACTIONS 443 [sym_kIf]; ACTIONS 445 [sym_kInherited]; ACTIONS 417 [sym_kNil];
   ACTIONS 415 [sym_kNot]; ACTIONS 439 [sym_kProcedure]; ACTIONS 447 [sym_kRaise];
   ACTIONS 449 [sym_kRepeat]; ACTIONS 451 [sym_kString]; ACTIONS 453 [sym_kTry];
   ACTIONS 455 [sym_kVar]; ACTIONS 457 [sym_kWhile]; ACTIONS 459 [sym_kWith]].

(** State 609. *)
Definition ts_parse_table_609 : parse_row :=
  [STATE 6213 [sym_if]; STATE 6327 [sym_ifElse; sym_while; sym_repeat; sym_for; sym_foreach;
   sym_try; sym_case; sym_block; sym_asm; sym_with; sym_raise; sym_statement; sym_goto;
   sym__statement]; STATE 15432 [sym_ifTr; sym_ifElseTr; sym_whileTr; sym_repeatTr; sym_forTr;
   sym_foreachTr; sym_tryTr; sym_caseTr]; STATE 14251 [sym_blockTr]; STATE 15432 [sym_asmTr;
   sym_withTr; sym_raiseTr; sym_statementTr; sym_gotoTr; sym__statementTr];
   STATE 13915 [sym_assignment]; STATE 11785 [sym_varAssignDef]; STATE 13915 [sym_varDef;
   sym_constDef]; STATE 6166 [sym_label]; STATE 15432 [sym__statementsTr]; STATE 8019 [sym__expr;
   sym_exprConditional]; STATE 7478 [sym__ref; sym_lambda; sym_inherited; sym_exprDot;
   sym_exprDeref; sym_exprAs; sym_exprTpl; sym_exprSubscript; sym_exprCall];
   STATE 8019 [sym_exprBinary; sym_exprUnary]; STATE 7478 [sym_exprParens; sym_exprBrackets;
   sym__literal; sym_literalString]; STATE 6664 [sym__literalString; sym_literalChar];
   STATE 7478 [sym_literalNumber]; STATE 7742 [sym__literalInt; sym__literalFloat];
   STATE 1380 [sym__ppIf]; STATE 6327 [sym__ppStatementBlock];
   STATE 11840 [aux_sym_labeledStatement_repeat1]; STATE 863 [aux_sym__statementsTr_repeat1];
   STATE 6664 [aux_sym_literalString_repeat1]; ACTIONS 397 [anon_sym_SEMI];
   ACTIONS 399 [anon_sym_LBRACK]; ACTIONS 401 [anon_sym_LPAREN];
   ACTIONS 403 [aux_sym__literalString_token1]; ACTIONS 405 [anon_sym_POUND];
   ACTIONS 407 [aux_sym__literalInt_token1]; ACTIONS 409 [aux_sym__literalInt_token2;
   aux_sym__literalInt_token3]; ACTIONS 407 [aux_sym__literalFloat_token1];
   ACTIONS 411 [aux_sym_ppUsesBlock_token1]; ACTIONS 413 [sym_kAdd; sym_kSub];
   ACTIONS 415 [sym_kAt]; ACTIONS 417 [sym_kTrue; sym_kFalse]; ACTIONS 419 [sym_labelNumber];
   ACTIONS 3 [sym__space]; ACTIONS 5 [sym_ppDirective]; ACTIONS 3 [sym_comment];
   ACTIONS 417 [sym_ppFragmentExpr]; ACTIONS 397 [sym_ppFragmentStmt];
   ACTIONS 403 [sym__literalStringMultiline]; ACTIONS 421 [sym_identifier];
   ACTIONS 423 [sym_kSpecialize]; ACTIONS 427 [sym_kAsm]; ACTIONS 429 [sym_kBegin];
   ACTIONS 431 [sym_kCase]; ACTIONS 433 [sym_kConst]; ACTIONS 3606 [sym_kEnd];
   ACTIONS 437 [sym_kFor]; ACTIONS 439 [sym_kFunction]; ACTIONS 441 [sym_kGoto];
   ACTIONS 443 [sym_kIf]; ACTIONS 445 [sym_kInherited]; ACTIONS 417 [sym_kNil];
   ACTIONS 415 [sym_kNot]; ACTIONS 439 [sym_kProcedure]; ACTIONS 447 [sym_kRaise];
   ACTIONS 449 [sym_kRepeat]; ACTIONS 451 [sym_kString]; ACTIONS 453 [sym_kTry];
   ACTIONS 455 [sym_kVar]; ACTIONS 457 [sym_kWhile]; ACTIONS 459 [sym_kWith]].

(** State 610. *)
Definition ts_parse_table_610 : parse_row :=
  [STATE 6213 [sym_if]; STATE 6327 [sym_ifElse; sym_while; sym_repeat; sym_for; sym_foreach;
   sym_try; sym_case; sym_block; sym_asm; sym_with; sym_raise; sym_statement; sym_goto;
   sym__statement]; STATE 15439 [sym_ifTr; sym_ifElseTr; sym_whileTr; sym_repeatTr; sym_forTr;
   sym_foreachTr; sym_tryTr; sym_caseTr]; STATE 14251 [sym_blockTr]; STATE 15439 [sym_asmTr;
   sym_withTr; sym_raiseTr; sym_statementTr; sym_gotoTr; sym__statementTr];
   STATE 13915 [sym_assignment]; STATE 11785 [sym_varAssignDef]; STATE 13915 [sym_varDef;
   sym_constDef]; STATE 6166 [sym_label]; STATE 15439 [sym__statementsTr]; STATE 8019 [sym__expr;
   sym_exprConditional]; STATE 7478 [sym__ref; sym_lambda; sym_inherited; sym_exprDot;
   sym_exprDeref; sym_exprAs; sym_exprTpl; sym_exprSubscript; sym_exprCall];
   STATE 8019 [sym_exprBinary; sym_exprUnary]; STATE 7478 [sym_exprParens; sym_exprBrackets;
   sym__literal; sym_literalString]; STATE 6664 [sym__literalString; sym_literalChar];
   STATE 7478 [sym_literalNumber]; STATE 7742 [sym__literalInt; sym__literalFloat];
   STATE 1380 [sym__ppIf]; STATE 6327 [sym__ppStatementBlock];
   STATE 11840 [aux_sym_labeledStatement_repeat1]; STATE 863 [aux_sym__statementsTr_repeat1];
   STATE 6664 [aux_sym_literalString_repeat1]; ACTIONS 397 [anon_sym_SEMI];
   ACTIONS 399 [anon_sym_LBRACK]; ACTIONS 401 [anon_sym_LPAREN];
   ACTIONS 403 [aux_sym__literalString_token1]; ACTIONS 405 [anon_sym_POUND];
   ACTIONS 407 [aux_sym__literalInt_token1]; ACTIONS 409 [aux_sym__literalInt_token2;
   aux_sym__literalInt_token3]; ACTIONS 407 [aux_sym__literalFloat_token1];
   ACTIONS 411 [aux_sym_ppUsesBlock_token1]; ACTIONS 413 [sym_kAdd; sym_kSub];
   ACTIONS 415 [sym_kAt]; ACTIONS 417 [sym_kTrue; sym_kFalse]; ACTIONS 419 [sym_labelNumber];
   ACTIONS 3 [sym__space]; ACTIONS 5 [sym_ppDirective]; ACTIONS 3 [sym_comment];
   ACTIONS 417 [sym_ppFragmentExpr]; ACTIONS 397 [sym_ppFragmentStmt];
   ACTIONS 403 [sym__literalStringMultiline]; ACTIONS 421 [sym_identifier];
   ACTIONS 423 [sym_kSpecialize]; ACTIONS 427 [sym_kAsm]; ACTIONS 429 [sym_kBegin];
   ACTIONS 431 [sym_kCase]; ACTIONS 433 [sym_kConst]; ACTIONS 3608 [sym_kEnd];
   ACTIONS 437 [sym_kFor]; ACTIONS 439 [sym_kFunction]; ACTIONS 441 [sym_kGoto];
   ACTIONS 443 [sym_kIf]; ACTIONS 445 [sym_kInherited]; ACTIONS 417 [sym_kNil];
   ACTIONS 415 [sym_kNot]; ACTIONS 439 [sym_kProcedure]; ACTIONS 447 [sym_kRaise];
   ACTIONS 449 [sym_kRepeat]; ACTIONS 451 [sym_kString]; ACTIONS 453 [sym_kTry];
   ACTIONS 455 [sym_kVar]; ACTIONS 457 [sym_kWhile]; ACTIONS 459 [sym_kWith]].

(** State 611. *)
Definition ts_parse_table_611 : parse_row :=
  [STATE 6213 [sym_if]; STATE 6327 [sym_ifElse; sym_while; sym_repeat; sym_for; sym_foreach;
   sym_try; sym_case; sym_block; sym_asm; sym_with; sym_raise; sym_statement; sym_goto;
   sym__statement]; STATE 14413 [sym_ifTr; sym_ifElseTr; sym_whileTr; sym_repeatTr; sym_forTr;
   sym_foreachTr; sym_tryTr; sym_caseTr]; STATE 14251 [sym_blockTr]; STATE 14413 [sym_asmTr;
   sym_withTr; sym_raiseTr; sym_statementTr; sym_gotoTr; sym__statementTr];
   STATE 13915 [sym_assignment]; STATE 11785 [sym_varAssignDef]; STATE 13915 [sym_varDef;
   sym_constDef]; STATE 6166 [sym_label]; STATE 14413 [sym__statementsTr]; STATE 8019 [sym__expr;
   sym_exprConditional]; STATE 7478 [sym__ref; sym_lambda; sym_inherited; sym_exprDot;
   sym_exprDeref; sym_exprAs; sym_exprTpl; sym_exprSubscript; sym_exprCall];
   STATE 8019 [sym_exprBinary; sym_exprUnary]; STATE 7478 [sym_exprParens; sym_exprBrackets;
   sym__literal; sym_literalString]; STATE 6664 [sym__literalString; sym_literalChar];
   STATE 7478 [sym_literalNumber]; STATE 7742 [sym__literalInt; sym__literalFloat];
   STATE 1380 [sym__ppIf]; STATE 6327 [sym__ppStatementBlock];
   STATE 11840 [aux_sym_labeledStatement_repeat1]; STATE 863 [aux_sym__statementsTr_repeat1];
   STATE 6664 [aux_sym_literalString_repeat1]; ACTIONS 397 [anon_sym_SEMI];
   ACTIONS 399 [anon_sym_LBRACK]; ACTIONS 401 [anon_sym_LPAREN];
   ACTIONS 403 [aux_sym__literalString_token1]; ACTIONS 405 [anon_sym_POUND];
   ACTIONS 407 [aux_sym__literalInt_token1]; ACTIONS 409 [aux_sym__literalInt_token2;
   aux_sym__literalInt_token3]; ACTIONS 407 [aux_sym__literalFloat_token1];
   ACTIONS 411 [aux_sym_ppUsesBlock_token1]; ACTIONS 413 [sym_kAdd; sym_kSub];
   ACTIONS 415 [sym_kAt]; ACTIONS 417 [sym_kTrue; sym_kFalse]; ACTIONS 419 [sym_labelNumber];
   ACTIONS 3 [sym__space]; ACTIONS 5 [sym_ppDirective]; ACTIONS 3 [sym_comment];
   ACTIONS 417 [sym_ppFragmentExpr]; ACTIONS 397 [sym_ppFragmentStmt];
   ACTIONS 403 [sym__literalStringMultiline]; ACTIONS 421 [sym_identifier];
   ACTIONS 423 [sym_kSpecialize]; ACTIONS 427 [sym_kAsm]; ACTIONS 429 [sym_kBegin];
   ACTIONS 431 [sym_kCase]; ACTIONS 433 [sym_kConst]; ACTIONS 3610 [sym_kEnd];
   ACTIONS 437 [sym_kFor]; ACTIONS 439 [sym_kFunction]; ACTIONS 441 [sym_kGoto];
   ACTIONS 443 [sym_kIf]; ACTIONS 445 [sym_kInherited]; ACTIONS 417 [sym_kNil];
   ACTIONS 415 [sym_kNot]; ACTIONS 439 [sym_kProcedure]; ACTIONS 447 [sym_kRaise];
   ACTIONS 449 [sym_kRepeat]; ACTIONS 451 [sym_kString]; ACTIONS 453 [sym_kTry];
   ACTIONS 455 [sym_kVar]; ACTIONS 457 [sym_kWhile]; ACTIONS 459 [sym_kWith]].

(** State 612. *)
Definition ts_parse_table_612 : parse_row :=
  [STATE 6213 [sym_if]; STATE 6327 [sym_ifElse; sym_while; sym_repeat; sym_for; sym_foreach;
   sym_try; sym_case; sym_block; sym_asm; sym_with; sym_raise; sym_statement; sym_goto;
   sym__statement]; STATE 15509 [sym_ifTr; sym_ifElseTr; sym_whileTr; sym_repeatTr; sym_forTr;
   sym_foreachTr; sym_tryTr; sym_caseTr]; STATE 14251 [sym_blockTr]; STATE 15509 [sym_asmTr;
   sym_withTr; sym_raiseTr; sym_statementTr; sym_gotoTr; sym__statementTr];
   STATE 13915 [sym_assignment]; STATE 11785 [sym_varAssignDef]; STATE 13915 [sym_varDef;
   sym_constDef]; STATE 6166 [sym_label]; STATE 15509 [sym__statementsTr]; STATE 8019 [sym__expr;
   sym_exprConditional]; STATE 7478 [sym__ref; sym_lambda; sym_inherited; sym_exprDot;
   sym_exprDeref; sym_exprAs; sym_exprTpl; sym_exprSubscript; sym_exprCall];
   STATE 8019 [sym_exprBinary; sym_exprUnary]; STATE 7478 [sym_exprParens; sym_exprBrackets;
   sym__literal; sym_literalString]; STATE 6664 [sym__literalString; sym_literalChar];
   STATE 7478 [sym_literalNumber]; STATE 7742 [sym__literalInt; sym__literalFloat];
   STATE 1380 [sym__ppIf]; STATE 6327 [sym__ppStatementBlock];
   STATE 11840 [aux_sym_labeledStatement_repeat1]; STATE 863 [aux_sym__statementsTr_repeat1];
   STATE 6664 [aux_sym_literalString_repeat1]; ACTIONS 397 [anon_sym_SEMI];
   ACTIONS 399 [anon_sym_LBRACK]; ACTIONS 401 [anon_sym_LPAREN];
   ACTIONS 403 [aux_sym__literalString_token1]; ACTIONS 405 [anon_sym_POUND];
   ACTIONS 407 [aux_sym__literalInt_token1]; ACTIONS 409 [aux_sym__literalInt_token2;
   aux_sym__literalInt_token3]; ACTIONS 407 [aux_sym__literalFloat_token1];
   ACTIONS 411 [aux_sym_ppUsesBlock_token1]; ACTIONS 413 [sym_kAdd; sym_kSub];
   ACTIONS 415 [sym_kAt]; ACTIONS 417 [sym_kTrue; sym_kFalse]; ACTIONS 419 [sym_labelNumber];
   ACTIONS 3 [sym__space]; ACTIONS 5 [sym_ppDirective]; ACTIONS 3 [sym_comment];
   ACTIONS 417 [sym_ppFragmentExpr]; ACTIONS 397 [sym_ppFragmentStmt];
   ACTIONS 403 [sym__literalStringMultiline]; ACTIONS 421 [sym_identifier];
   ACTIONS 423 [sym_kSpecialize]; ACTIONS 427 [sym_kAsm]; ACTIONS 429 [sym_kBegin];
   ACTIONS 431 [sym_kCase]; ACTIONS 433 [sym_kConst]; ACTIONS 3612 [sym_kEnd];
   ACTIONS 437 [sym_kFor]; ACTIONS 439 [sym_kFunction]; ACTIONS 441 [sym_kGoto];
   ACTIONS 443 [sym_kIf]; ACTIONS 445 [sym_kInherited]; ACTIONS 417 [sym_kNil];
   ACTIONS 415 [sym_kNot]; ACTIONS 439 [sym_kProcedure]; ACTIONS 447 [sym_kRaise];
   ACTIONS 449 [sym_kRepeat]; ACTIONS 451 [sym_kString]; ACTIONS 453 [sym_kTry];
   ACTIONS 455 [sym_kVar]; ACTIONS 457 [sym_kWhile]; ACTIONS 459 [sym_kWith]].

(** State 613. *)
Definition ts_parse_table_613 : parse_row :=
  [STATE 6213 [sym_if]; STATE 6327 [sym_ifElse; sym_while; sym_repeat; sym_for; sym_foreach;
   sym_try; sym_case; sym_block; sym_asm; sym_with; sym_raise; sym_statement; sym_goto;
   sym__statement]; STATE 15673 [sym_ifTr; sym_ifElseTr; sym_whileTr; sym_repeatTr; sym_forTr;
   sym_foreachTr; sym_tryTr; sym_caseTr]; STATE 14251 [sym_blockTr]; STATE 15673 [sym_asmTr;
   sym_withTr; sym_raiseTr; sym_statementTr; sym_gotoTr; sym__statementTr];
   STATE 13915 [sym_assignment]; STATE 11785 [sym_varAssignDef]; STATE 13915 [sym_varDef;
   sym_constDef]; STATE 6166 [sym_label]; STATE 15673 [sym__statementsTr]; STATE 8019 [sym__expr;
   sym_exprConditional]; STATE 7478 [sym__ref; sym_lambda; sym_inherited; sym_exprDot;
   sym_exprDeref; sym_exprAs; sym_exprTpl; sym_exprSubscript; sym_exprCall];
   STATE 8019 [sym_exprBinary; sym_exprUnary]; STATE 7478 [sym_exprParens; sym_exprBrackets;
   sym__literal; sym_literalString]; STATE 6664 [sym__literalString; sym_literalChar];
   STATE 7478 [sym_literalNumber]; STATE 7742 [sym__literalInt; sym__literalFloat];
   STATE 1380 [sym__ppIf]; STATE 6327 [sym__ppStatementBlock];
   STATE 11840 [aux_sym_labeledStatement_repeat1]; STATE 863 [aux_sym__statementsTr_repeat1];
   STATE 6664 [aux_sym_literalString_repeat1]; ACTIONS 397 [anon_sym_SEMI];
   ACTIONS 399 [anon_sym_LBRACK]; ACTIONS 401 [anon_sym_LPAREN];
   ACTIONS 403 [aux_sym__literalString_token1]; ACTIONS 405 [anon_sym_POUND];
   ACTIONS 407 [aux_sym__literalInt_token1]; ACTIONS 409 [aux_sym__literalInt_token2;
   aux_sym__literalInt_token3]; ACTIONS 407 [aux_sym__literalFloat_token1];
   ACTIONS 411 [aux_sym_ppUsesBlock_token1]; ACTIONS 413 [sym_kAdd; sym_kSub];
   ACTIONS 415 [sym_kAt]; ACTIONS 417 [sym_kTrue; sym_kFalse]; ACTIONS 419 [sym_labelNumber];
   ACTIONS 3 [sym__space]; ACTIONS 5 [sym_ppDirective]; ACTIONS 3 [sym_comment];
   ACTIONS 417 [sym_ppFragmentExpr]; ACTIONS 397 [sym_ppFragmentStmt];
   ACTIONS 403 [sym__literalStringMultiline]; ACTIONS 421 [sym_identifier];
   ACTIONS 423 [sym_kSpecialize]; ACTIONS 427 [sym_kAsm]; ACTIONS 429 [sym_kBegin];
   ACTIONS 431 [sym_kCase]; ACTIONS 433 [sym_kConst]; ACTIONS 2471 [sym_kEnd];
   ACTIONS 437 [sym_kFor]; ACTIONS 439 [sym_kFunction]; ACTIONS 441 [sym_kGoto];
   ACTIONS 443 [sym_kIf]; ACTIONS 445 [sym_kInherited]; ACTIONS 417 [sym_kNil];
   ACTIONS 415 [sym_kNot]; ACTIONS 439 [sym_kProcedure]; ACTIONS 447 [sym_kRaise];
   ACTIONS 449 [sym_kRepeat]; ACTIONS 451 [sym_kString]; ACTIONS 453 [sym_kTry];
   ACTIONS 455 [sym_kVar]; ACTIONS 457 [sym_kWhile]; ACTIONS 459 [sym_kWith]].

(** State 614. *)
Definition ts_parse_table_614 : parse_row :=
  [STATE 17 [sym__ppIf]; STATE 635 [sym_ppBlock; sym_declVar]; STATE 5427 [sym_rttiAttributes];
   STATE 635 [aux_sym_declVars_repeat1]; STATE 5428 [aux_sym_declVar_repeat1];
   STATE 4094 [aux_sym_rttiAttributes_repeat2]; ACTIONS 3366 [anon_sym_SEMI; anon_sym_COMMA];
   ACTIONS 3368 [anon_sym_LBRACK]; ACTIONS 3371 [anon_sym_LPAREN];
   ACTIONS 3366 [aux_sym__literalString_token1; anon_sym_POUND];
   ACTIONS 3371 [aux_sym__literalInt_token1]; ACTIONS 3366 [aux_sym__literalInt_token2;
   aux_sym__literalInt_token3]; ACTIONS 3371 [aux_sym__literalFloat_token1];
   ACTIONS 3373 [aux_sym_ppUsesBlock_token1]; ACTIONS 3366 [aux_sym_ppUsesBlock_token2;
   aux_sym_ppUsesBlock_token3]; ACTIONS 3371 [sym_kAdd; sym_kSub]; ACTIONS 3366 [sym_kAt;
   sym_kTrue; sym_kFalse]; ACTIONS 3 [sym__space]; ACTIONS 5 [sym_ppDirective];
   ACTIONS 3 [sym_comment]; ACTIONS 3366 [sym_ppFragmentExpr; sym__literalStringMultiline];
   ACTIONS 3614 [sym_identifier]; ACTIONS 3379 [sym_kDefault; sym_kNodefault; sym_kDispId];
   ACTIONS 3366 [sym_kGeneric; sym_kSpecialize]; ACTIONS 3379 [sym_kOperator; sym_kPublic;
   sym_kStatic; sym_kVirtual; sym_kAbstract; sym_kDynamic; sym_kOverride; sym_kOverload;
   sym_kReintroduce; sym_kStdcall; sym_kCdecl; sym_kCppdecl; sym_kPascal; sym_kRegister;
   sym_kMwpascal; sym_kMessage; sym_kDeprecated; sym_kExperimental; sym_kPlatform;
   sym_kUnimplemented; sym_kCvar; sym_kExport; sym_kFar; sym_kNear; sym_kSafecall;
   sym_kAssembler; sym_kNostackframe; sym_kInterrupt; sym_kNoreturn; sym_kIocheck; sym_kLocal;
   sym_kHardfloat; sym_kSoftfloat; sym_kMs_abi_default; sym_kMs_abi_cdecl; sym_kSaveregisters;
   sym_kSysv_abi_default; sym_kSysv_abi_cdecl; sym_kVectorcall; sym_kVarargs; sym_kWinapi;
   sym_kAlias]; ACTIONS 3366 [sym_kAsm; sym_kBegin; sym_kCase; sym_kClass; sym_kConst;
   sym_kConstructor; sym_kDestructor; sym_kExports; sym_kFor; sym_kFunction; sym_kGoto; sym_kIf;
   sym_kInherited; sym_kLabel; sym_kNil; sym_kNot; sym_kProcedure; sym_kProperty; sym_kRaise;
   sym_kRepeat; sym_kResourcestring; sym_kString; sym_kThreadvar; sym_kTry; sym_kType; sym_kUses;
   sym_kVar; sym_kWhile; sym_kWith]].

(** State 615. *)
Definition ts_parse_table_615 : parse_row :=
  [STATE 6213 [sym_if]; STATE 6327 [sym_ifElse; sym_while; sym_repeat; sym_for; sym_foreach;
   sym_try; sym_case; sym_block; sym_asm; sym_with; sym_raise; sym_statement; sym_goto;
   sym__statement]; STATE 15685 [sym_ifTr; sym_ifElseTr; sym_whileTr; sym_repeatTr; sym_forTr;
   sym_foreachTr; sym_tryTr; sym_caseTr]; STATE 14251 [sym_blockTr]; STATE 15685 [sym_asmTr;
   sym_withTr; sym_raiseTr; sym_statementTr; sym_gotoTr; sym__statementTr];
   STATE 13915 [sym_assignment]; STATE 11785 [sym_varAssignDef]; STATE 13915 [sym_varDef;
   sym_constDef]; STATE 6166 [sym_label]; STATE 15685 [sym__statementsTr]; STATE 8019 [sym__expr;
   sym_exprConditional]; STATE 7478 [sym__ref; sym_lambda; sym_inherited; sym_exprDot;
   sym_exprDeref; sym_exprAs; sym_exprTpl; sym_exprSubscript; sym_exprCall];
   STATE 8019 [sym_exprBinary; sym_exprUnary]; STATE 7478 [sym_exprParens; sym_exprBrackets;
   sym__literal; sym_literalString]; STATE 6664 [sym__literalString; sym_literalChar];
   STATE 7478 [sym_literalNumber]; STATE 7742 [sym__literalInt; sym__literalFloat];
   STATE 1380 [sym__ppIf]; STATE 6327 [sym__ppStatementBlock];
   STATE 11840 [aux_sym_labeledStatement_repeat1]; STATE 863 [aux_sym__statementsTr_repeat1];
   STATE 6664 [aux_sym_literalString_repeat1]; ACTIONS 397 [anon_sym_SEMI];
   ACTIONS 399 [anon_sym_LBRACK]; ACTIONS 401 [anon_sym_LPAREN];
   ACTIONS 403 [aux_sym__literalString_token1]; ACTIONS 405 [anon_sym_POUND];
   ACTIONS 407 [aux_sym__literalInt_token1]; ACTIONS 409 [aux_sym__literalInt_token2;
   aux_sym__literalInt_token3]; ACTIONS 407 [aux_sym__literalFloat_token1];
   ACTIONS 411 [aux_sym_ppUsesBlock_token1]; ACTIONS 413 [sym_kAdd; sym_kSub];
   ACTIONS 415 [sym_kAt]; ACTIONS 417 [sym_kTrue; sym_kFalse]; ACTIONS 419 [sym_labelNumber];
   ACTIONS 3 [sym__space]; ACTIONS 5 [sym_ppDirective]; ACTIONS 3 [sym_comment];
   ACTIONS 417 [sym_ppFragmentExpr]; ACTIONS 397 [sym_ppFragmentStmt];
   ACTIONS 403 [sym__literalStringMultiline]; ACTIONS 421 [sym_identifier];
   ACTIONS 423 [sym_kSpecialize]; ACTIONS 427 [sym_kAsm]; ACTIONS 429 [sym_kBegin];
   ACTIONS 431 [sym_kCase]; ACTIONS 433 [sym_kConst]; ACTIONS 2475 [sym_kEnd];
   ACTIONS 437 [sym_kFor]; ACTIONS 439 [sym_kFunction]; ACTIONS 441 [sym_kGoto];
   ACTIONS 443 [sym_kIf]; ACTIONS 445 [sym_kInherited]; ACTIONS 417 [sym_kNil];
   ACTIONS 415 [sym_kNot]; ACTIONS 439 [sym_kProcedure]; ACTIONS 447 [sym_kRaise];
   ACTIONS 449 [sym_kRepeat]; ACTIONS 451 [sym_kString]; ACTIONS 453 [sym_kTry];
   ACTIONS 455 [sym_kVar]; ACTIONS 457 [sym_kWhile]; ACTIONS 459 [sym_kWith]].

(** State 616. *)
Definition ts_parse_table_616 : parse_row :=
  [STATE 6213 [sym_if]; STATE 6327 [sym_ifElse; sym_while; sym_repeat; sym_for; sym_foreach;
   sym_try; sym_case; sym_block; sym_asm; sym_with; sym_raise; sym_statement; sym_goto;
   sym__statement]; STATE 15689 [sym_ifTr; sym_ifElseTr; sym_whileTr; sym_repeatTr; sym_forTr;
   sym_foreachTr; sym_tryTr; sym_caseTr]; STATE 14251 [sym_blockTr]; STATE 15689 [sym_asmTr;
   sym_withTr; sym_raiseTr; sym_statementTr; sym_gotoTr; sym__statementTr];
   STATE 13915 [sym_assignment]; STATE 11785 [sym_varAssignDef]; STATE 13915 [sym_varDef;
   sym_constDef]; STATE 6166 [sym_label]; STATE 15689 [sym__statementsTr]; STATE 8019 [sym__expr;
   sym_exprConditional]; STATE 7478 [sym__ref; sym_lambda; sym_inherited; sym_exprDot;
   sym_exprDeref; sym_exprAs; sym_exprTpl; sym_exprSubscript; sym_exprCall];
   STATE 8019 [sym_exprBinary; sym_exprUnary]; STATE 7478 [sym_exprParens; sym_exprBrackets;
   sym__literal; sym_literalString]; STATE 6664 [sym__literalString; sym_literalChar];
   STATE 7478 [sym_literalNumber]; STATE 7742 [sym__literalInt; sym__literalFloat];
   STATE 1380 [sym__ppIf]; STATE 6327 [sym__ppStatementBlock];
   STATE 11840 [aux_sym_labeledStatement_repeat1]; STATE 863 [aux_sym__statementsTr_repeat1];
   STATE 6664 [aux_sym_literalString_repeat1]; ACTIONS 397 [anon_sym_SEMI];
   ACTIONS 399 [anon_sym_LBRACK]; ACTIONS 401 [anon_sym_LPAREN];
   ACTIONS 403 [aux_sym__literalString_token1]; ACTIONS 405 [anon_sym_POUND];
   ACTIONS 407 [aux_sym__literalInt_token1]; ACTIONS 409 [aux_sym__literalInt_token2;
   aux_sym__literalInt_token3]; ACTIONS 407 [aux_sym__literalFloat_token1];
   ACTIONS 411 [aux_sym_ppUsesBlock_token1]; ACTIONS 413 [sym_kAdd; sym_kSub];
   ACTIONS 415 [sym_kAt]; ACTIONS 417 [sym_kTrue; sym_kFalse]; ACTIONS 419 [sym_labelNumber];
   ACTIONS 3 [sym__space]; ACTIONS 5 [sym_ppDirective]; ACTIONS 3 [sym_comment];
   ACTIONS 417 [sym_ppFragmentExpr]; ACTIONS 397 [sym_ppFragmentStmt];
   ACTIONS 403 [sym__literalStringMultiline]; ACTIONS 421 [sym_identifier];
   ACTIONS 423 [sym_kSpecialize]; ACTIONS 427 [sym_kAsm]; ACTIONS 429 [sym_kBegin];
   ACTIONS 431 [sym_kCase]; ACTIONS 433 [sym_kConst]; ACTIONS 3617 [sym_kEnd];
   ACTIONS 437 [sym_kFor]; ACTIONS 439 [sym_kFunction]; ACTIONS 441 [sym_kGoto];
   ACTIONS 443 [sym_kIf]; ACTIONS 445 [sym_kInherited]; ACTIONS 417 [sym_kNil];
   ACTIONS 415 [sym_kNot]; ACTIONS 439 [sym_kProcedure]; ACTIONS 447 [sym_kRaise];
   ACTIONS 449 [sym_kRepeat]; ACTIONS 451 [sym_kString]; ACTIONS 453 [sym_kTry];
   ACTIONS 455 [sym_kVar]; ACTIONS 457 [sym_kWhile]; ACTIONS 459 [sym_kWith]].

(** State 617. *)
Definition ts_parse_table_617 : parse_row :=
  [STATE 6213 [sym_if]; STATE 6327 [sym_ifElse; sym_while; sym_repeat; sym_for; sym_foreach;
   sym_try; sym_case; sym_block; sym_asm; sym_with; sym_raise; sym_statement; sym_goto;
   sym__statement]; STATE 15816 [sym_ifTr; sym_ifElseTr; sym_whileTr; sym_repeatTr; sym_forTr;
   sym_foreachTr; sym_tryTr; sym_caseTr]; STATE 14251 [sym_blockTr]; STATE 15816 [sym_asmTr;
   sym_withTr; sym_raiseTr; sym_statementTr; sym_gotoTr; sym__statementTr];
   STATE 13915 [sym_assignment]; STATE 11785 [sym_varAssignDef]; STATE 13915 [sym_varDef;
   sym_constDef]; STATE 6166 [sym_label]; STATE 15816 [sym__statementsTr]; STATE 8019 [sym__expr;
   sym_exprConditional]; STATE 7478 [sym__ref; sym_lambda; sym_inherited; sym_exprDot;
   sym_exprDeref; sym_exprAs; sym_exprTpl; sym_exprSubscript; sym_exprCall];
   STATE 8019 [sym_exprBinary; sym_exprUnary]; STATE 7478 [sym_exprParens; sym_exprBrackets;
   sym__literal; sym_literalString]; STATE 6664 [sym__literalString; sym_literalChar];
   STATE 7478 [sym_literalNumber]; STATE 7742 [sym__literalInt; sym__literalFloat];
   STATE 1380 [sym__ppIf]; STATE 6327 [sym__ppStatementBlock];
   STATE 11840 [aux_sym_labeledStatement_repeat1]; STATE 863 [aux_sym__statementsTr_repeat1];
   STATE 6664 [aux_sym_literalString_repeat1]; ACTIONS 397 [anon_sym_SEMI];
   ACTIONS 399 [anon_sym_LBRACK]; ACTIONS 401 [anon_sym_LPAREN];
   ACTIONS 403 [aux_sym__literalString_token1]; ACTIONS 405 [anon_sym_POUND];
   ACTIONS 407 [aux_sym__literalInt_token1]; ACTIONS 409 [aux_sym__literalInt_token2;
   aux_sym__literalInt_token3]; ACTIONS 407 [aux_sym__literalFloat_token1];
   ACTIONS 411 [aux_sym_ppUsesBlock_token1]; ACTIONS 413 [sym_kAdd; sym_kSub];
   ACTIONS 415 [sym_kAt]; ACTIONS 417 [sym_kTrue; sym_kFalse]; ACTIONS 419 [sym_labelNumber];
   ACTIONS 3 [sym__space]; ACTIONS 5 [sym_ppDirective]; ACTIONS 3 [sym_comment];
   ACTIONS 417 [sym_ppFragmentExpr]; ACTIONS 397 [sym_ppFragmentStmt];
   ACTIONS 403 [sym__literalStringMultiline]; ACTIONS 421 [sym_identifier];
   ACTIONS 423 [sym_kSpecialize]; ACTIONS 427 [sym_kAsm]; ACTIONS 429 [sym_kBegin];
   ACTIONS 431 [sym_kCase]; ACTIONS 433 [sym_kConst]; ACTIONS 3619 [sym_kEnd];
   ACTIONS 437 [sym_kFor]; ACTIONS 439 [sym_kFunction]; ACTIONS 441 [sym_kGoto];
   ACTIONS 443 [sym_kIf]; ACTIONS 445 [sym_kInherited]; ACTIONS 417 [sym_kNil];
   ACTIONS 415 [sym_kNot]; ACTIONS 439 [sym_kProcedure]; ACTIONS 447 [sym_kRaise];
   ACTIONS 449 [sym_kRepeat]; ACTIONS 451 [sym_kString]; ACTIONS 453 [sym_kTry];
   ACTIONS 455 [sym_kVar]; ACTIONS 457 [sym_kWhile]; ACTIONS 459 [sym_kWith]].

(** State 618. *)
Definition ts_parse_table_618 : parse_row :=
  [STATE 6213 [sym_if]; STATE 6327 [sym_ifElse; sym_while; sym_repeat; sym_for; sym_foreach;
   sym_try; sym_case; sym_block; sym_asm; sym_with; sym_raise; sym_statement; sym_goto;
   sym__statement]; STATE 14653 [sym_ifTr; sym_ifElseTr; sym_whileTr; sym_repeatTr; sym_forTr;
   sym_foreachTr; sym_tryTr; sym_caseTr]; STATE 14251 [sym_blockTr]; STATE 14653 [sym_asmTr;
   sym_withTr; sym_raiseTr; sym_statementTr; sym_gotoTr; sym__statementTr];
   STATE 13915 [sym_assignment]; STATE 11785 [sym_varAssignDef]; STATE 13915 [sym_varDef;
   sym_constDef]; STATE 6166 [sym_label]; STATE 14653 [sym__statementsTr]; STATE 8019 [sym__expr;
   sym_exprConditional]; STATE 7478 [sym__ref; sym_lambda; sym_inherited; sym_exprDot;
   sym_exprDeref; sym_exprAs; sym_exprTpl; sym_exprSubscript; sym_exprCall];
   STATE 8019 [sym_exprBinary; sym_exprUnary]; STATE 7478 [sym_exprParens; sym_exprBrackets;
   sym__literal; sym_literalString]; STATE 6664 [sym__literalString; sym_literalChar];
   STATE 7478 [sym_literalNumber]; STATE 7742 [sym__literalInt; sym__literalFloat];
   STATE 1380 [sym__ppIf]; STATE 6327 [sym__ppStatementBlock];
   STATE 11840 [aux_sym_labeledStatement_repeat1]; STATE 863 [aux_sym__statementsTr_repeat1];
   STATE 6664 [aux_sym_literalString_repeat1]; ACTIONS 397 [anon_sym_SEMI];
   ACTIONS 399 [anon_sym_LBRACK]; ACTIONS 401 [anon_sym_LPAREN];
   ACTIONS 403 [aux_sym__literalString_token1]; ACTIONS 405 [anon_sym_POUND];
   ACTIONS 407 [aux_sym__literalInt_token1]; ACTIONS 409 [aux_sym__literalInt_token2;
   aux_sym__literalInt_token3]; ACTIONS 407 [aux_sym__literalFloat_token1];
   ACTIONS 411 [aux_sym_ppUsesBlock_token1]; ACTIONS 413 [sym_kAdd; sym_kSub];
   ACTIONS 415 [sym_kAt]; ACTIONS 417 [sym_kTrue; sym_kFalse]; ACTIONS 419 [sym_labelNumber];
   ACTIONS 3 [sym__space]; ACTIONS 5 [sym_ppDirective]; ACTIONS 3 [sym_comment];
   ACTIONS 417 [sym_ppFragmentExpr]; ACTIONS 397 [sym_ppFragmentStmt];
   ACTIONS 403 [sym__literalStringMultiline]; ACTIONS 421 [sym_identifier];
   ACTIONS 423 [sym_kSpecialize]; ACTIONS 427 [sym_kAsm]; ACTIONS 429 [sym_kBegin];
   ACTIONS 431 [sym_kCase]; ACTIONS 433 [sym_kConst]; ACTIONS 1294 [sym_kEnd];
   ACTIONS 437 [sym_kFor]; ACTIONS 439 [sym_kFunction]; ACTIONS 441 [sym_kGoto];
   ACTIONS 443 [sym_kIf]; ACTIONS 445 [sym_kInherited]; ACTIONS 417 [sym_kNil];
   ACTIONS 415 [sym_kNot]; ACTIONS 439 [sym_kProcedure]; ACTIONS 447 [sym_kRaise];
   ACTIONS 449 [sym_kRepeat]; ACTIONS 451 [sym_kString]; ACTIONS 453 [sym_kTry];
   ACTIONS 455 [sym_kVar]; ACTIONS 457 [sym_kWhile]; ACTIONS 459 [sym_kWith]].

(** State 619. *)
Definition ts_parse_table_619 : parse_row :=
  [STATE 6213 [sym_if]; STATE 6327 [sym_ifElse; sym_while; sym_repeat; sym_for; sym_foreach;
   sym_try; sym_case; sym_block; sym_asm; sym_with; sym_raise; sym_statement; sym_goto;
   sym__statement]; STATE 14673 [sym_ifTr; sym_ifElseTr; sym_whileTr; sym_repeatTr; sym_forTr;
   sym_foreachTr; sym_tryTr; sym_caseTr]; STATE 14251 [sym_blockTr]; STATE 14673 [sym_asmTr;
   sym_withTr; sym_raiseTr; sym_statementTr; sym_gotoTr; sym__statementTr];
   STATE 13915 [sym_assignment]; STATE 11785 [sym_varAssignDef]; STATE 13915 [sym_varDef;
   sym_constDef]; STATE 6166 [sym_label]; STATE 14673 [sym__statementsTr]; STATE 8019 [sym__expr;
   sym_exprConditional]; STATE 7478 [sym__ref; sym_lambda; sym_inherited; sym_exprDot;
   sym_exprDeref; sym_exprAs; sym_exprTpl; sym_exprSubscript; sym_exprCall];
   STATE 8019 [sym_exprBinary; sym_exprUnary]; STATE 7478 [sym_exprParens; sym_exprBrackets;
   sym__literal; sym_literalString]; STATE 6664 [sym__literalString; sym_literalChar];
   STATE 7478 [sym_literalNumber]; STATE 7742 [sym__literalInt; sym__literalFloat];
   STATE 1380 [sym__ppIf]; STATE 6327 [sym__ppStatementBlock];
   STATE 11840 [aux_sym_labeledStatement_repeat1]; STATE 863 [aux_sym__statementsTr_repeat1];
   STATE 6664 [aux_sym_literalString_repeat1]; ACTIONS 397 [anon_sym_SEMI];
   ACTIONS 399 [anon_sym_LBRACK]; ACTIONS 401 [anon_sym_LPAREN];
   ACTIONS 403 [aux_sym__literalString_token1]; ACTIONS 405 [anon_sym_POUND];
   ACTIONS 407 [aux_sym__literalInt_token1]; ACTIONS 409 [aux_sym__literalInt_token2;
   aux_sym__literalInt_token3]; ACTIONS 407 [aux_sym__literalFloat_token1];
   ACTIONS 411 [aux_sym_ppUsesBlock_token1]; ACTIONS 413 [sym_kAdd; sym_kSub];
   ACTIONS 415 [sym_kAt]; ACTIONS 417 [sym_kTrue; sym_kFalse]; ACTIONS 419 [sym_labelNumber];
   ACTIONS 3 [sym__space]; ACTIONS 5 [sym_ppDirective]; ACTIONS 3 [sym_comment];
   ACTIONS 417 [sym_ppFragmentExpr]; ACTIONS 397 [sym_ppFragmentStmt];
   ACTIONS 403 [sym__literalStringMultiline]; ACTIONS 421 [sym_identifier];
   ACTIONS 423 [sym_kSpecialize]; ACTIONS 427 [sym_kAsm]; ACTIONS 429 [sym_kBegin];
   ACTIONS 431 [sym_kCase]; ACTIONS 433 [sym_kConst]; ACTIONS 1298 [sym_kEnd];
   ACTIONS 437 [sym_kFor]; ACTIONS 439 [sym_kFunction]; ACTIONS 441 [sym_kGoto];
   ACTIONS 443 [sym_kIf]; ACTIONS 445 [sym_kInherited]; ACTIONS 417 [sym_kNil];
   ACTIONS 415 [sym_kNot]; ACTIONS 439 [sym_kProcedure]; ACTIONS 447 [sym_kRaise];
   ACTIONS 449 [sym_kRepeat]; ACTIONS 451 [sym_kString]; ACTIONS 453 [sym_kTry];
   ACTIONS 455 [sym_kVar]; ACTIONS 457 [sym_kWhile]; ACTIONS 459 [sym_kWith]].

(** State 620. *)
Definition ts_parse_table_620 : parse_row :=
  [STATE 6213 [sym_if]; STATE 6327 [sym_ifElse; sym_while; sym_repeat; sym_for; sym_foreach;
   sym_try; sym_case; sym_block; sym_asm; sym_with; sym_raise; sym_statement; sym_goto;
   sym__statement]; STATE 14687 [sym_ifTr; sym_ifElseTr; sym_whileTr; sym_repeatTr; sym_forTr;
   sym_foreachTr; sym_tryTr; sym_caseTr]; STATE 14251 [sym_blockTr]; STATE 14687 [sym_asmTr;
   sym_withTr; sym_raiseTr; sym_statementTr; sym_gotoTr; sym__statementTr];
   STATE 13915 [sym_assignment]; STATE 11785 [sym_varAssignDef]; STATE 13915 [sym_varDef;
   sym_constDef]; STATE 6166 [sym_label]; STATE 14687 [sym__statementsTr]; STATE 8019 [sym__expr;
   sym_exprConditional]; STATE 7478 [sym__ref; sym_lambda; sym_inherited; sym_exprDot;
   sym_exprDeref; sym_exprAs; sym_exprTpl; sym_exprSubscript; sym_exprCall];
   STATE 8019 [sym_exprBinary; sym_exprUnary]; STATE 7478 [sym_exprParens; sym_exprBrackets;
   sym__literal; sym_literalString]; STATE 6664 [sym__literalString; sym_literalChar];
   STATE 7478 [sym_literalNumber]; STATE 7742 [sym__literalInt; sym__literalFloat];
   STATE 1380 [sym__ppIf]; STATE 6327 [sym__ppStatementBlock];
   STATE 11840 [aux_sym_labeledStatement_repeat1]; STATE 863 [aux_sym__statementsTr_repeat1];
   STATE 6664 [aux_sym_literalString_repeat1]; ACTIONS 397 [anon_sym_SEMI];
   ACTIONS 399 [anon_sym_LBRACK]; ACTIONS 401 [anon_sym_LPAREN];
   ACTIONS 403 [aux_sym__literalString_token1]; ACTIONS 405 [anon_sym_POUND];
   ACTIONS 407 [aux_sym__literalInt_token1]; ACTIONS 409 [aux_sym__literalInt_token2;
   aux_sym__literalInt_token3]; ACTIONS 407 [aux_sym__literalFloat_token1];
   ACTIONS 411 [aux_sym_ppUsesBlock_token1]; ACTIONS 413 [sym_kAdd; sym_kSub];
   ACTIONS 415 [sym_kAt]; ACTIONS 417 [sym_kTrue; sym_kFalse]; ACTIONS 419 [sym_labelNumber];
   ACTIONS 3 [sym__space]; ACTIONS 5 [sym_ppDirective]; ACTIONS 3 [sym_comment];
   ACTIONS 417 [sym_ppFragmentExpr]; ACTIONS 397 [sym_ppFragmentStmt];
   ACTIONS 403 [sym__literalStringMultiline]; ACTIONS 421 [sym_identifier];
   ACTIONS 423 [sym_kSpecialize]; ACTIONS 427 [sym_kAsm]; ACTIONS 429 [sym_kBegin];
   ACTIONS 431 [sym_kCase]; ACTIONS 433 [sym_kConst]; ACTIONS 3621 [sym_kEnd];
   ACTIONS 437 [sym_kFor]; ACTIONS 439 [sym_kFunction]; ACTIONS 441 [sym_kGoto];
   ACTIONS 443 [sym_kIf]; ACTIONS 445 [sym_kInherited]; ACTIONS 417 [sym_kNil];
   ACTIONS 415 [sym_kNot]; ACTIONS 439 [sym_kProcedure]; ACTIONS 447 [sym_kRaise];
   ACTIONS 449 [sym_kRepeat]; ACTIONS 451 [sym_kString]; ACTIONS 453 [sym_kTry];
   ACTIONS 455 [sym_kVar]; ACTIONS 457 [sym_kWhile]; ACTIONS 459 [sym_kWith]].

(** State 621. *)
Definition ts_parse_table_621 : parse_row :=
  [STATE 6213 [sym_if]; STATE 6327 [sym_ifElse; sym_while; sym_repeat; sym_for; sym_foreach;
   sym_try; sym_case; sym_block; sym_asm; sym_with; sym_raise; sym_statement; sym_goto;
   sym__statement]; STATE 15967 [sym_ifTr; sym_ifElseTr; sym_whileTr; sym_repeatTr; sym_forTr;
   sym_foreachTr; sym_tryTr; sym_caseTr]; STATE 14251 [sym_blockTr]; STATE 15967 [sym_asmTr;
   sym_withTr; sym_raiseTr; sym_statementTr; sym_gotoTr; sym__statementTr];
   STATE 13915 [sym_assignment]; STATE 11785 [sym_varAssignDef]; STATE 13915 [sym_varDef;
   sym_constDef]; STATE 6166 [sym_label]; STATE 15967 [sym__statementsTr]; STATE 8019 [sym__expr;
   sym_exprConditional]; STATE 7478 [sym__ref; sym_lambda; sym_inherited; sym_exprDot;
   sym_exprDeref; sym_exprAs; sym_exprTpl; sym_exprSubscript; sym_exprCall];
   STATE 8019 [sym_exprBinary; sym_exprUnary]; STATE 7478 [sym_exprParens; sym_exprBrackets;
   sym__literal; sym_literalString]; STATE 6664 [sym__literalString; sym_literalChar];
   STATE 7478 [sym_literalNumber]; STATE 7742 [sym__literalInt; sym__literalFloat];
   STATE 1380 [sym__ppIf]; STATE 6327 [sym__ppStatementBlock];
   STATE 11840 [aux_sym_labeledStatement_repeat1]; STATE 863 [aux_sym__statementsTr_repeat1];
   STATE 6664 [aux_sym_literalString_repeat1]; ACTIONS 397 [anon_sym_SEMI];
   ACTIONS 399 [anon_sym_LBRACK]; ACTIONS 401 [anon_sym_LPAREN];
   ACTIONS 403 [aux_sym__literalString_token1]; ACTIONS 405 [anon_sym_POUND];
   ACTIONS 407 [aux_sym__literalInt_token1]; ACTIONS 409 [aux_sym__literalInt_token2;
   aux_sym__literalInt_token3]; ACTIONS 407 [aux_sym__literalFloat_token1];
   ACTIONS 411 [aux_sym_ppUsesBlock_token1]; ACTIONS 413 [sym_kAdd; sym_kSub];
   ACTIONS 415 [sym_kAt]; ACTIONS 417 [sym_kTrue; sym_kFalse]; ACTIONS 419 [sym_labelNumber];
   ACTIONS 3 [sym__space]; ACTIONS 5 [sym_ppDirective]; ACTIONS 3 [sym_comment];
   ACTIONS 417 [sym_ppFragmentExpr]; ACTIONS 397 [sym_ppFragmentStmt];
   ACTIONS 403 [sym__literalStringMultiline]; ACTIONS 421 [sym_identifier];
   ACTIONS 423 [sym_kSpecialize]; ACTIONS 427 [sym_kAsm]; ACTIONS 429 [sym_kBegin];
   ACTIONS 431 [sym_kCase]; ACTIONS 433 [sym_kConst]; ACTIONS 2582 [sym_kEnd];
   ACTIONS 437 [sym_kFor]; ACTIONS 439 [sym_kFunction]; ACTIONS 441 [sym_kGoto];
   ACTIONS 443 [sym_kIf]; ACTIONS 445 [sym_kInherited]; ACTIONS 417 [sym_kNil];
   ACTIONS 415 [sym_kNot]; ACTIONS 439 [sym_kProcedure]; ACTIONS 447 [sym_kRaise];
   ACTIONS 449 [sym_kRepeat]; ACTIONS 451 [sym_kString]; ACTIONS 453 [sym_kTry];
   ACTIONS 455 [sym_kVar]; ACTIONS 457 [sym_kWhile]; ACTIONS 459 [sym_kWith]].

(** State 622. *)
Definition ts_parse_table_622 : parse_row :=
  [STATE 6213 [sym_if]; STATE 6327 [sym_ifElse; sym_while; sym_repeat; sym_for; sym_foreach;
   sym_try; sym_case; sym_block; sym_asm; sym_with; sym_raise; sym_statement; sym_goto;
   sym__statement]; STATE 14746 [sym_ifTr; sym_ifElseTr; sym_whileTr; sym_repeatTr; sym_forTr;
   sym_foreachTr; sym_tryTr; sym_caseTr]; STATE 14251 [sym_blockTr]; STATE 14746 [sym_asmTr;
   sym_withTr; sym_raiseTr; sym_statementTr; sym_gotoTr; sym__statementTr];
   STATE 13915 [sym_assignment]; STATE 11785 [sym_varAssignDef]; STATE 13915 [sym_varDef;
   sym_constDef]; STATE 6166 [sym_label]; STATE 14746 [sym__statementsTr]; STATE 8019 [sym__expr;
   sym_exprConditional]; STATE 7478 [sym__ref; sym_lambda; sym_inherited; sym_exprDot;
   sym_exprDeref; sym_exprAs; sym_exprTpl; sym_exprSubscript; sym_exprCall];
   STATE 8019 [sym_exprBinary; sym_exprUnary]; STATE 7478 [sym_exprParens; sym_exprBrackets;
   sym__literal; sym_literalString]; STATE 6664 [sym__literalString; sym_literalChar];
   STATE 7478 [sym_literalNumber]; STATE 7742 [sym__literalInt; sym__literalFloat];
   STATE 1380 [sym__ppIf]; STATE 6327 [sym__ppStatementBlock];
   STATE 11840 [aux_sym_labeledStatement_repeat1]; STATE 863 [aux_sym__statementsTr_repeat1];
   STATE 6664 [aux_sym_literalString_repeat1]; ACTIONS 397 [anon_sym_SEMI];
   ACTIONS 399 [anon_sym_LBRACK]; ACTIONS 401 [anon_sym_LPAREN];
   ACTIONS 403 [aux_sym__literalString_token1]; ACTIONS 405 [anon_sym_POUND];
   ACTIONS 407 [aux_sym__literalInt_token1]; ACTIONS 409 [aux_sym__literalInt_token2;
   aux_sym__literalInt_token3]; ACTIONS 407 [aux_sym__literalFloat_token1];
   ACTIONS 411 [aux_sym_ppUsesBlock_token1]; ACTIONS 413 [sym_kAdd; sym_kSub];
   ACTIONS 415 [sym_kAt]; ACTIONS 417 [sym_kTrue; sym_kFalse]; ACTIONS 419 [sym_labelNumber];
   ACTIONS 3 [sym__space]; ACTIONS 5 [sym_ppDirective]; ACTIONS 3 [sym_comment];
   ACTIONS 417 [sym_ppFragmentExpr]; ACTIONS 397 [sym_ppFragmentStmt];
   ACTIONS 403 [sym__literalStringMultiline]; ACTIONS 421 [sym_identifier];
   ACTIONS 423 [sym_kSpecialize]; ACTIONS 427 [sym_kAsm]; ACTIONS 429 [sym_kBegin];
   ACTIONS 431 [sym_kCase]; ACTIONS 433 [sym_kConst]; ACTIONS 3623 [sym_kEnd];
   ACTIONS 437 [sym_kFor]; ACTIONS 439 [sym_kFunction]; ACTIONS 441 [sym_kGoto];
   ACTIONS 443 [sym_kIf]; ACTIONS 445 [sym_kInherited]; ACTIONS 417 [sym_kNil];
   ACTIONS 415 [sym_kNot]; ACTIONS 439 [sym_kProcedure]; ACTIONS 447 [sym_kRaise];
   ACTIONS 449 [sym_kRepeat]; ACTIONS 451 [sym_kString]; ACTIONS 453 [sym_kTry];
   ACTIONS 455 [sym_kVar]; ACTIONS 457 [sym_kWhile]; ACTIONS 459 [sym_kWith]].

(** State 623. *)
Definition ts_parse_table_623 : parse_row :=
  [STATE 6213 [sym_if]; STATE 6327 [sym_ifElse; sym_while; sym_repeat; sym_for; sym_foreach;
   sym_try; sym_case; sym_block; sym_asm; sym_with; sym_raise; sym_statement; sym_goto;
   sym__statement]; STATE 15974 [sym_ifTr; sym_ifElseTr; sym_whileTr; sym_repeatTr; sym_forTr;
   sym_foreachTr; sym_tryTr; sym_caseTr]; STATE 14251 [sym_blockTr]; STATE 15974 [sym_asmTr;
   sym_withTr; sym_raiseTr; sym_statementTr; sym_gotoTr; sym__statementTr];
   STATE 13915 [sym_assignment]; STATE 11785 [sym_varAssignDef]; STATE 13915 [sym_varDef;
   sym_constDef]; STATE 6166 [sym_label]; STATE 15974 [sym__statementsTr]; STATE 8019 [sym__expr;
   sym_exprConditional]; STATE 7478 [sym__ref; sym_lambda; sym_inherited; sym_exprDot;
   sym_exprDeref; sym_exprAs; sym_exprTpl; sym_exprSubscript; sym_exprCall];
   STATE 8019 [sym_exprBinary; sym_exprUnary]; STATE 7478 [sym_exprParens; sym_exprBrackets;
   sym__literal; sym_literalString]; STATE 6664 [sym__literalString; sym_literalChar];
   STATE 7478 [sym_literalNumber]; STATE 7742 [sym__literalInt; sym__literalFloat];
   STATE 1380 [sym__ppIf]; STATE 6327 [sym__ppStatementBlock];
   STATE 11840 [aux_sym_labeledStatement_repeat1]; STATE 863 [aux_sym__statementsTr_repeat1];
   STATE 6664 [aux_sym_literalString_repeat1]; ACTIONS 397 [anon_sym_SEMI];
   ACTIONS 399 [anon_sym_LBRACK]; ACTIONS 401 [anon_sym_LPAREN];
   ACTIONS 403 [aux_sym__literalString_token1]; ACTIONS 405 [anon_sym_POUND];
   ACTIONS 407 [aux_sym__literalInt_token1]; ACTIONS 409 [aux_sym__literalInt_token2;
   aux_sym__literalInt_token3]; ACTIONS 407 [aux_sym__literalFloat_token1];
   ACTIONS 411 [aux_sym_ppUsesBlock_token1]; ACTIONS 413 [sym_kAdd; sym_kSub];
   ACTIONS 415 [sym_kAt]; ACTIONS 417 [sym_kTrue; sym_kFalse]; ACTIONS 419 [sym_labelNumber];
   ACTIONS 3 [sym__space]; ACTIONS 5 [sym_ppDirective]; ACTIONS 3 [sym_comment];
   ACTIONS 417 [sym_ppFragmentExpr]; ACTIONS 397 [sym_ppFragmentStmt];
   ACTIONS 403 [sym__literalStringMultiline]; ACTIONS 421 [sym_identifier];
   ACTIONS 423 [sym_kSpecialize]; ACTIONS 427 [sym_kAsm]; ACTIONS 429 [sym_kBegin];
   ACTIONS 431 [sym_kCase]; ACTIONS 433 [sym_kConst]; ACTIONS 2586 [sym_kEnd];
   ACTIONS 437 [sym_kFor]; ACTIONS 439 [sym_kFunction]; ACTIONS 441 [sym_kGoto];
   ACTIONS 443 [sym_kIf]; ACTIONS 445 [sym_kInherited]; ACTIONS 417 [sym_kNil];
   ACTIONS 415 [sym_kNot]; ACTIONS 439 [sym_kProcedure]; ACTIONS 447 [sym_kRaise];
   ACTIONS 449 [sym_kRepeat]; ACTIONS 451 [sym_kString]; ACTIONS 453 [sym_kTry];
   ACTIONS 455 [sym_kVar]; ACTIONS 457 [sym_kWhile]; ACTIONS 459 [sym_kWith]].

(** State 624. *)
Definition ts_parse_table_624 : parse_row :=
  [STATE 6213 [sym_if]; STATE 6327 [sym_ifElse; sym_while; sym_repeat; sym_for; sym_foreach;
   sym_try; sym_case; sym_block; sym_asm; sym_with; sym_raise; sym_statement; sym_goto;
   sym__statement]; STATE 14811 [sym_ifTr; sym_ifElseTr; sym_whileTr; sym_repeatTr; sym_forTr;
   sym_foreachTr; sym_tryTr; sym_caseTr]; STATE 14251 [sym_blockTr]; STATE 14811 [sym_asmTr;
   sym_withTr; sym_raiseTr; sym_statementTr; sym_gotoTr; sym__statementTr];
   STATE 13915 [sym_assignment]; STATE 11785 [sym_varAssignDef]; STATE 13915 [sym_varDef;
   sym_constDef]; STATE 6166 [sym_label]; STATE 14811 [sym__statementsTr]; STATE 8019 [sym__expr;
   sym_exprConditional]; STATE 7478 [sym__ref; sym_lambda; sym_inherited; sym_exprDot;
   sym_exprDeref; sym_exprAs; sym_exprTpl; sym_exprSubscript; sym_exprCall];
   STATE 8019 [sym_exprBinary; sym_exprUnary]; STATE 7478 [sym_exprParens; sym_exprBrackets;
   sym__literal; sym_literalString]; STATE 6664 [sym__literalString; sym_literalChar];
   STATE 7478 [sym_literalNumber]; STATE 7742 [sym__literalInt; sym__literalFloat];
   STATE 1380 [sym__ppIf]; STATE 6327 [sym__ppStatementBlock];
   STATE 11840 [aux_sym_labeledStatement_repeat1]; STATE 863 [aux_sym__statementsTr_repeat1];
   STATE 6664 [aux_sym_literalString_repeat1]; ACTIONS 397 [anon_sym_SEMI];
   ACTIONS 399 [anon_sym_LBRACK]; ACTIONS 401 [anon_sym_LPAREN];
   ACTIONS 403 [aux_sym__literalString_token1]; ACTIONS 405 [anon_sym_POUND];
   ACTIONS 407 [aux_sym__literalInt_token1]; ACTIONS 409 [aux_sym__literalInt_token2;
   aux_sym__literalInt_token3]; ACTIONS 407 [aux_sym__literalFloat_token1];
   ACTIONS 411 [aux_sym_ppUsesBlock_token1]; ACTIONS 413 [sym_kAdd; sym_kSub];
   ACTIONS 415 [sym_kAt]; ACTIONS 417 [sym_kTrue; sym_kFalse]; ACTIONS 419 [sym_labelNumber];
   ACTIONS 3 [sym__space]; ACTIONS 5 [sym_ppDirective]; ACTIONS 3 [sym_comment];
   ACTIONS 417 [sym_ppFragmentExpr]; ACTIONS 397 [sym_ppFragmentStmt];
   ACTIONS 403 [sym__literalStringMultiline]; ACTIONS 421 [sym_identifier];
   ACTIONS 423 [sym_kSpecialize]; ACTIONS 427 [sym_kAsm]; ACTIONS 429 [sym_kBegin];
   ACTIONS 431 [sym_kCase]; ACTIONS 433 [sym_kConst]; ACTIONS 3625 [sym_kEnd];
   ACTIONS 437 [sym_kFor]; ACTIONS 439 [sym_kFunction]; ACTIONS 441 [sym_kGoto];
   ACTIONS 443 [sym_kIf]; ACTIONS 445 [sym_kInherited]; ACTIONS 417 [sym_kNil];
   ACTIONS 415 [sym_kNot]; ACTIONS 439 [sym_kProcedure]; ACTIONS 447 [sym_kRaise];
   ACTIONS 449 [sym_kRepeat]; ACTIONS 451 [sym_kString]; ACTIONS 453 [sym_kTry];
   ACTIONS 455 [sym_kVar]; ACTIONS 457 [sym_kWhile]; ACTIONS 459 [sym_kWith]].

(** State 625. *)
Definition ts_parse_table_625 : parse_row :=
  [STATE 6213 [sym_if]; STATE 6327 [sym_ifElse; sym_while; sym_repeat; sym_for; sym_foreach;
   sym_try; sym_case; sym_block; sym_asm; sym_with; sym_raise; sym_statement; sym_goto;
   sym__statement]; STATE 15977 [sym_ifTr; sym_ifElseTr; sym_whileTr; sym_repeatTr; sym_forTr;
   sym_foreachTr; sym_tryTr; sym_caseTr]; STATE 14251 [sym_blockTr]; STATE 15977 [sym_asmTr;
   sym_withTr; sym_raiseTr; sym_statementTr; sym_gotoTr; sym__statementTr];
   STATE 13915 [sym_assignment]; STATE 11785 [sym_varAssignDef]; STATE 13915 [sym_varDef;
   sym_constDef]; STATE 6166 [sym_label]; STATE 15977 [sym__statementsTr]; STATE 8019 [sym__expr;
   sym_exprConditional]; STATE 7478 [sym__ref; sym_lambda; sym_inherited; sym_exprDot;
   sym_exprDeref; sym_exprAs; sym_exprTpl; sym_exprSubscript; sym_exprCall];
   STATE 8019 [sym_exprBinary; sym_exprUnary]; STATE 7478 [sym_exprParens; sym_exprBrackets;
   sym__literal; sym_literalString]; STATE 6664 [sym__literalString; sym_literalChar];
   STATE 7478 [sym_literalNumber]; STATE 7742 [sym__literalInt; sym__literalFloat];
   STATE 1380 [sym__ppIf]; STATE 6327 [sym__ppStatementBlock];
   STATE 11840 [aux_sym_labeledStatement_repeat1]; STATE 863 [aux_sym__statementsTr_repeat1];
   STATE 6664 [aux_sym_literalString_repeat1]; ACTIONS 397 [anon_sym_SEMI];
   ACTIONS 399 [anon_sym_LBRACK]; ACTIONS 401 [anon_sym_LPAREN];
   ACTIONS 403 [aux_sym__literalString_token1]; ACTIONS 405 [anon_sym_POUND];
   ACTIONS 407 [aux_sym__literalInt_token1]; ACTIONS 409 [aux_sym__literalInt_token2;
   aux_sym__literalInt_token3]; ACTIONS 407 [aux_sym__literalFloat_token1];
   ACTIONS 411 [aux_sym_ppUsesBlock_token1]; ACTIONS 413 [sym_kAdd; sym_kSub];
   ACTIONS 415 [sym_kAt]; ACTIONS 417 [sym_kTrue; sym_kFalse]; ACTIONS 419 [sym_labelNumber];
   ACTIONS 3 [sym__space]; ACTIONS 5 [sym_ppDirective]; ACTIONS 3 [sym_comment];
   ACTIONS 417 [sym_ppFragmentExpr]; ACTIONS 397 [sym_ppFragmentStmt];
   ACTIONS 403 [sym__literalStringMultiline]; ACTIONS 421 [sym_identifier];
   ACTIONS 423 [sym_kSpecialize]; ACTIONS 427 [sym_kAsm]; ACTIONS 429 [sym_kBegin];
   ACTIONS 431 [sym_kCase]; ACTIONS 433 [sym_kConst]; ACTIONS 3627 [sym_kEnd];
   ACTIONS 437 [sym_kFor]; ACTIONS 439 [sym_kFunction]; ACTIONS 441 [sym_kGoto];
   ACTIONS 443 [sym_kIf]; ACTIONS 445 [sym_kInherited]; ACTIONS 417 [sym_kNil];
   ACTIONS 415 [sym_kNot]; ACTIONS 439 [sym_kProcedure]; ACTIONS 447 [sym_kRaise];
   ACTIONS 449 [sym_kRepeat]; ACTIONS 451 [sym_kString]; ACTIONS 453 [sym_kTry];
   ACTIONS 455 [sym_kVar]; ACTIONS 457 [sym_kWhile]; ACTIONS 459 [sym_kWith]].

(** State 626. *)
Definition ts_parse_table_626 : parse_row :=
  [STATE 6213 [sym_if]; STATE 6327 [sym_ifElse; sym_while; sym_repeat; sym_for; sym_foreach;
   sym_try; sym_case; sym_block; sym_asm; sym_with; sym_raise; sym_statement; sym_goto;
   sym__statement]; STATE 14133 [sym_ifTr; sym_ifElseTr; sym_whileTr; sym_repeatTr; sym_forTr;
   sym_foreachTr; sym_tryTr; sym_caseTr]; STATE 14251 [sym_blockTr]; STATE 14133 [sym_asmTr;
   sym_withTr; sym_raiseTr; sym_statementTr; sym_gotoTr; sym__statementTr];
   STATE 13915 [sym_assignment]; STATE 11785 [sym_varAssignDef]; STATE 13915 [sym_varDef;
   sym_constDef]; STATE 6166 [sym_label]; STATE 14133 [sym__statementsTr]; STATE 8019 [sym__expr;
   sym_exprConditional]; STATE 7478 [sym__ref; sym_lambda; sym_inherited; sym_exprDot;
   sym_exprDeref; sym_exprAs; sym_exprTpl; sym_exprSubscript; sym_exprCall];
   STATE 8019 [sym_exprBinary; sym_exprUnary]; STATE 7478 [sym_exprParens; sym_exprBrackets;
   sym__literal; sym_literalString]; STATE 6664 [sym__literalString; sym_literalChar];
   STATE 7478 [sym_literalNumber]; STATE 7742 [sym__literalInt; sym__literalFloat];
   STATE 1380 [sym__ppIf]; STATE 6327 [sym__ppStatementBlock];
   STATE 11840 [aux_sym_labeledStatement_repeat1]; STATE 863 [aux_sym__statementsTr_repeat1];
   STATE 6664 [aux_sym_literalString_repeat1]; ACTIONS 397 [anon_sym_SEMI];
   ACTIONS 399 [anon_sym_LBRACK]; ACTIONS 401 [anon_sym_LPAREN];
   ACTIONS 403 [aux_sym__literalString_token1]; ACTIONS 405 [anon_sym_POUND];
   ACTIONS 407 [aux_sym__literalInt_token1]; ACTIONS 409 [aux_sym__literalInt_token2;
   aux_sym__literalInt_token3]; ACTIONS 407 [aux_sym__literalFloat_token1];
   ACTIONS 411 [aux_sym_ppUsesBlock_token1]; ACTIONS 413 [sym_kAdd; sym_kSub];
   ACTIONS 415 [sym_kAt]; ACTIONS 417 [sym_kTrue; sym_kFalse]; ACTIONS 419 [sym_labelNumber];
   ACTIONS 3 [sym__space]; ACTIONS 5 [sym_ppDirective]; ACTIONS 3 [sym_comment];
   ACTIONS 417 [sym_ppFragmentExpr]; ACTIONS 397 [sym_ppFragmentStmt];
   ACTIONS 403 [sym__literalStringMultiline]; ACTIONS 421 [sym_identifier];
   ACTIONS 423 [sym_kSpecialize]; ACTIONS 427 [sym_kAsm]; ACTIONS 429 [sym_kBegin];
   ACTIONS 431 [sym_kCase]; ACTIONS 433 [sym_kConst]; ACTIONS 3629 [sym_kEnd];
   ACTIONS 437 [sym_kFor]; ACTIONS 439 [sym_kFunction]; ACTIONS 441 [sym_kGoto];
   ACTIONS 443 [sym_kIf]; ACTIONS 445 [sym_kInherited]; ACTIONS 417 [sym_kNil];
   ACTIONS 415 [sym_kNot]; ACTIONS 439 [sym_kProcedure]; ACTIONS 447 [sym_kRaise];
   ACTIONS 449 [sym_kRepeat]; ACTIONS 451 [sym_kString]; ACTIONS 453 [sym_kTry];
   ACTIONS 455 [sym_kVar]; ACTIONS 457 [sym_kWhile]; ACTIONS 459 [sym_kWith]].

(** State 627. *)
Definition ts_parse_table_627 : parse_row :=
  [STATE 17 [sym__ppIf]; STATE 651 [sym_ppBlock; sym_declVar]; STATE 5427 [sym_rttiAttributes];
   STATE 651 [aux_sym_declVars_repeat1]; STATE 5428 [aux_sym_declVar_repeat1];
   STATE 4094 [aux_sym_rttiAttributes_repeat2]; ACTIONS 3631 [anon_sym_SEMI; anon_sym_COMMA];
   ACTIONS 3633 [anon_sym_LBRACK]; ACTIONS 3636 [anon_sym_LPAREN];
   ACTIONS 3631 [aux_sym__literalString_token1; anon_sym_POUND];
   ACTIONS 3636 [aux_sym__literalInt_token1]; ACTIONS 3631 [aux_sym__literalInt_token2;
   aux_sym__literalInt_token3]; ACTIONS 3636 [aux_sym__literalFloat_token1];
   ACTIONS 3638 [aux_sym_ppUsesBlock_token1]; ACTIONS 3631 [aux_sym_ppUsesBlock_token2;
   aux_sym_ppUsesBlock_token3]; ACTIONS 3636 [sym_kAdd; sym_kSub]; ACTIONS 3631 [sym_kAt;
   sym_kTrue; sym_kFalse]; ACTIONS 3 [sym__space]; ACTIONS 5 [sym_ppDirective];
   ACTIONS 3 [sym_comment]; ACTIONS 3631 [sym_ppFragmentExpr; sym__literalStringMultiline];
   ACTIONS 3641 [sym_identifier]; ACTIONS 3644 [sym_kDefault; sym_kNodefault; sym_kDispId];
   ACTIONS 3631 [sym_kGeneric; sym_kSpecialize]; ACTIONS 3644 [sym_kOperator; sym_kPublic;
   sym_kStatic; sym_kVirtual; sym_kAbstract; sym_kDynamic; sym_kOverride; sym_kOverload;
   sym_kReintroduce; sym_kStdcall; sym_kCdecl; sym_kCppdecl; sym_kPascal; sym_kRegister;
   sym_kMwpascal; sym_kMessage; sym_kDeprecated; sym_kExperimental; sym_kPlatform;
   sym_kUnimplemented; sym_kCvar; sym_kExport; sym_kFar; sym_kNear; sym_kSafecall;
   sym_kAssembler; sym_kNostackframe; sym_kInterrupt; sym_kNoreturn; sym_kIocheck; sym_kLocal;
   sym_kHardfloat; sym_kSoftfloat; sym_kMs_abi_default; sym_kMs_abi_cdecl; sym_kSaveregisters;
   sym_kSysv_abi_default; sym_kSysv_abi_cdecl; sym_kVectorcall; sym_kVarargs; sym_kWinapi;
   sym_kAlias]; ACTIONS 3631 [sym_kAsm; sym_kBegin; sym_kCase; sym_kClass; sym_kConst;
   sym_kConstructor; sym_kDestructor; sym_kExports; sym_kFor; sym_kFunction; sym_kGoto; sym_kIf;
   sym_kInherited; sym_kLabel; sym_kNil; sym_kNot; sym_kProcedure; sym_kProperty; sym_kRaise;
   sym_kRepeat; sym_kResourcestring; sym_kString; sym_kThreadvar; sym_kTry; sym_kType; sym_kUses;
   sym_kVar; sym_kWhile; sym_kWith]].

(** State 628. *)
Definition ts_parse_table_628 : parse_row :=
  [STATE 6213 [sym_if]; STATE 6327 [sym_ifElse; sym_while; sym_repeat; sym_for; sym_foreach;
   sym_try; sym_case; sym_block; sym_asm; sym_with; sym_raise; sym_statement; sym_goto;
   sym__statement]; STATE 15121 [sym_ifTr; sym_ifElseTr; sym_whileTr; sym_repeatTr; sym_forTr;
   sym_foreachTr; sym_tryTr; sym_caseTr]; STATE 14251 [sym_blockTr]; STATE 15121 [sym_asmTr;
   sym_withTr; sym_raiseTr; sym_statementTr; sym_gotoTr; sym__statementTr];
   STATE 13915 [sym_assignment]; STATE 11785 [sym_varAssignDef]; STATE 13915 [sym_varDef;
   sym_constDef]; STATE 6166 [sym_label]; STATE 15121 [sym__statementsTr]; STATE 8019 [sym__expr;
   sym_exprConditional]; STATE 7478 [sym__ref; sym_lambda; sym_inherited; sym_exprDot;
   sym_exprDeref; sym_exprAs; sym_exprTpl; sym_exprSubscript; sym_exprCall];
   STATE 8019 [sym_exprBinary; sym_exprUnary]; STATE 7478 [sym_exprParens; sym_exprBrackets;
   sym__literal; sym_literalString]; STATE 6664 [sym__literalString; sym_literalChar];
   STATE 7478 [sym_literalNumber]; STATE 7742 [sym__literalInt; sym__literalFloat];
   STATE 1380 [sym__ppIf]; STATE 6327 [sym__ppStatementBlock];
   STATE 11840 [aux_sym_labeledStatement_repeat1]; STATE 863 [aux_sym__statementsTr_repeat1];
   STATE 6664 [aux_sym_literalString_repeat1]; ACTIONS 397 [anon_sym_SEMI];
   ACTIONS 399 [anon_sym_LBRACK]; ACTIONS 401 [anon_sym_LPAREN];
   ACTIONS 403 [aux_sym__literalString_token1]; ACTIONS 405 [anon_sym_POUND];
   ACTIONS 407 [aux_sym__literalInt_token1]; ACTIONS 409 [aux_sym__literalInt_token2;
   aux_sym__literalInt_token3]; ACTIONS 407 [aux_sym__literalFloat_token1];
   ACTIONS 411 [aux_sym_ppUsesBlock_token1]; ACTIONS 413 [sym_kAdd; sym_kSub];
   ACTIONS 415 [sym_kAt]; ACTIONS 417 [sym_kTrue; sym_kFalse]; ACTIONS 419 [sym_labelNumber];
   ACTIONS 3 [sym__space]; ACTIONS 5 [sym_ppDirective]; ACTIONS 3 [sym_comment];
   ACTIONS 417 [sym_ppFragmentExpr]; ACTIONS 397 [sym_ppFragmentStmt];
   ACTIONS 403 [sym__literalStringMultiline]; ACTIONS 421 [sym_identifier];
   ACTIONS 423 [sym_kSpecialize]; ACTIONS 427 [sym_kAsm]; ACTIONS 429 [sym_kBegin];
   ACTIONS 431 [sym_kCase]; ACTIONS 433 [sym_kConst]; ACTIONS 1310 [sym_kEnd];
   ACTIONS 437 [sym_kFor]; ACTIONS 439 [sym_kFunction]; ACTIONS 441 [sym_kGoto];
   ACTIONS 443 [sym_kIf]; ACTIONS 445 [sym_kInherited]; ACTIONS 417 [sym_kNil];
   ACTIONS 415 [sym_kNot]; ACTIONS 439 [sym_kProcedure]; ACTIONS 447 [sym_kRaise];
   ACTIONS 449 [sym_kRepeat]; ACTIONS 451 [sym_kString]; ACTIONS 453 [sym_kTry];
   ACTIONS 455 [sym_kVar]; ACTIONS 457 [sym_kWhile]; ACTIONS 459 [sym_kWith]].

(** State 629. *)
Definition ts_parse_table_629 : parse_row :=
  [STATE 6213 [sym_if]; STATE 6327 [sym_ifElse; sym_while; sym_repeat; sym_for; sym_foreach;
   sym_try; sym_case; sym_block; sym_asm; sym_with; sym_raise; sym_statement; sym_goto;
   sym__statement]; STATE 14234 [sym_ifTr; sym_ifElseTr; sym_whileTr; sym_repeatTr; sym_forTr;
   sym_foreachTr; sym_tryTr; sym_caseTr]; STATE 14251 [sym_blockTr]; STATE 14234 [sym_asmTr;
   sym_withTr; sym_raiseTr; sym_statementTr; sym_gotoTr; sym__statementTr];
   STATE 13915 [sym_assignment]; STATE 11785 [sym_varAssignDef]; STATE 13915 [sym_varDef;
   sym_constDef]; STATE 6166 [sym_label]; STATE 14234 [sym__statementsTr]; STATE 8019 [sym__expr;
   sym_exprConditional]; STATE 7478 [sym__ref; sym_lambda; sym_inherited; sym_exprDot;
   sym_exprDeref; sym_exprAs; sym_exprTpl; sym_exprSubscript; sym_exprCall];
   STATE 8019 [sym_exprBinary; sym_exprUnary]; STATE 7478 [sym_exprParens; sym_exprBrackets;
   sym__literal; sym_literalString]; STATE 6664 [sym__literalString; sym_literalChar];
   STATE 7478 [sym_literalNumber]; STATE 7742 [sym__literalInt; sym__literalFloat];
   STATE 1380 [sym__ppIf]; STATE 6327 [sym__ppStatementBlock];
   STATE 11840 [aux_sym_labeledStatement_repeat1]; STATE 863 [aux_sym__statementsTr_repeat1];
   STATE 6664 [aux_sym_literalString_repeat1]; ACTIONS 397 [anon_sym_SEMI];
   ACTIONS 399 [anon_sym_LBRACK]; ACTIONS 401 [anon_sym_LPAREN];
   ACTIONS 403 [aux_sym__literalString_token1]; ACTIONS 405 [anon_sym_POUND];
   ACTIONS 407 [aux_sym__literalInt_token1]; ACTIONS 409 [aux_sym__literalInt_token2;
   aux_sym__literalInt_token3]; ACTIONS 407 [aux_sym__literalFloat_token1];
   ACTIONS 411 [aux_sym_ppUsesBlock_token1]; ACTIONS 413 [sym_kAdd; sym_kSub];
   ACTIONS 415 [sym_kAt]; ACTIONS 417 [sym_kTrue; sym_kFalse]; ACTIONS 419 [sym_labelNumber];
   ACTIONS 3 [sym__space]; ACTIONS 5 [sym_ppDirective]; ACTIONS 3 [sym_comment];
   ACTIONS 417 [sym_ppFragmentExpr]; ACTIONS 397 [sym_ppFragmentStmt];
   ACTIONS 403 [sym__literalStringMultiline]; ACTIONS 421 [sym_identifier];
   ACTIONS 423 [sym_kSpecialize]; ACTIONS 427 [sym_kAsm]; ACTIONS 429 [sym_kBegin];
   ACTIONS 431 [sym_kCase]; ACTIONS 433 [sym_kConst]; ACTIONS 2724 [sym_kEnd];
   ACTIONS 437 [sym_kFor]; ACTIONS 439 [sym_kFunction]; ACTIONS 441 [sym_kGoto];
   ACTIONS 443 [sym_kIf]; ACTIONS 445 [sym_kInherited]; ACTIONS 417 [sym_kNil];
   ACTIONS 415 [sym_kNot]; ACTIONS 439 [sym_kProcedure]; ACTIONS 447 [sym_kRaise];
   ACTIONS 449 [sym_kRepeat]; ACTIONS 451 [sym_kString]; ACTIONS 453 [sym_kTry];
   ACTIONS 455 [sym_kVar]; ACTIONS 457 [sym_kWhile]; ACTIONS 459 [sym_kWith]].

(** State 630. *)
Definition ts_parse_table_630 : parse_row :=
  [STATE 6213 [sym_if]; STATE 6327 [sym_ifElse; sym_while; sym_repeat; sym_for; sym_foreach;
   sym_try; sym_case; sym_block; sym_asm; sym_with; sym_raise; sym_statement; sym_goto;
   sym__statement]; STATE 14239 [sym_ifTr; sym_ifElseTr; sym_whileTr; sym_repeatTr; sym_forTr;
   sym_foreachTr; sym_tryTr; sym_caseTr]; STATE 14251 [sym_blockTr]; STATE 14239 [sym_asmTr;
   sym_withTr; sym_raiseTr; sym_statementTr; sym_gotoTr; sym__statementTr];
   STATE 13915 [sym_assignment]; STATE 11785 [sym_varAssignDef]; STATE 13915 [sym_varDef;
   sym_constDef]; STATE 6166 [sym_label]; STATE 14239 [sym__statementsTr]; STATE 8019 [sym__expr;
   sym_exprConditional]; STATE 7478 [sym__ref; sym_lambda; sym_inherited; sym_exprDot;
   sym_exprDeref; sym_exprAs; sym_exprTpl; sym_exprSubscript; sym_exprCall];
   STATE 8019 [sym_exprBinary; sym_exprUnary]; STATE 7478 [sym_exprParens; sym_exprBrackets;
   sym__literal; sym_literalString]; STATE 6664 [sym__literalString; sym_literalChar];
   STATE 7478 [sym_literalNumber]; STATE 7742 [sym__literalInt; sym__literalFloat];
   STATE 1380 [sym__ppIf]; STATE 6327 [sym__ppStatementBlock];
   STATE 11840 [aux_sym_labeledStatement_repeat1]; STATE 863 [aux_sym__statementsTr_repeat1];
   STATE 6664 [aux_sym_literalString_repeat1]; ACTIONS 397 [anon_sym_SEMI];
   ACTIONS 399 [anon_sym_LBRACK]; ACTIONS 401 [anon_sym_LPAREN];
   ACTIONS 403 [aux_sym__literalString_token1]; ACTIONS 405 [anon_sym_POUND];
   ACTIONS 407 [aux_sym__literalInt_token1]; ACTIONS 409 [aux_sym__literalInt_token2;
   aux_sym__literalInt_token3]; ACTIONS 407 [aux_sym__literalFloat_token1];
   ACTIONS 411 [aux_sym_ppUsesBlock_token1]; ACTIONS 413 [sym_kAdd; sym_kSub];
   ACTIONS 415 [sym_kAt]; ACTIONS 417 [sym_kTrue; sym_kFalse]; ACTIONS 419 [sym_labelNumber];
   ACTIONS 3 [sym__space]; ACTIONS 5 [sym_ppDirective]; ACTIONS 3 [sym_comment];
   ACTIONS 417 [sym_ppFragmentExpr]; ACTIONS 397 [sym_ppFragmentStmt];
   ACTIONS 403 [sym__literalStringMultiline]; ACTIONS 421 [sym_identifier];
   ACTIONS 423 [sym_kSpecialize]; ACTIONS 427 [sym_kAsm]; ACTIONS 429 [sym_kBegin];
   ACTIONS 431 [sym_kCase]; ACTIONS 433 [sym_kConst]; ACTIONS 2728 [sym_kEnd];
   ACTIONS 437 [sym_kFor]; ACTIONS 439 [sym_kFunction]; ACTIONS 441 [sym_kGoto];
   ACTIONS 443 [sym_kIf]; ACTIONS 445 [sym_kInherited]; ACTIONS 417 [sym_kNil];
   ACTIONS 415 [sym_kNot]; ACTIONS 439 [sym_kProcedure]; ACTIONS 447 [sym_kRaise];
   ACTIONS 449 [sym_kRepeat]; ACTIONS 451 [sym_kString]; ACTIONS 453 [sym_kTry];
   ACTIONS 455 [sym_kVar]; ACTIONS 457 [sym_kWhile]; ACTIONS 459 [sym_kWith]].

(** State 631. *)
Definition ts_parse_table_631 : parse_row :=
  [STATE 6213 [sym_if]; STATE 6327 [sym_ifElse; sym_while; sym_repeat; sym_for; sym_foreach;
   sym_try; sym_case; sym_block; sym_asm; sym_with; sym_raise; sym_statement; sym_goto;
   sym__statement]; STATE 15139 [sym_ifTr; sym_ifElseTr; sym_whileTr; sym_repeatTr; sym_forTr;
   sym_foreachTr; sym_tryTr; sym_caseTr]; STATE 14251 [sym_blockTr]; STATE 15139 [sym_asmTr;
   sym_withTr; sym_raiseTr; sym_statementTr; sym_gotoTr; sym__statementTr];
   STATE 13915 [sym_assignment]; STATE 11785 [sym_varAssignDef]; STATE 13915 [sym_varDef;
   sym_constDef]; STATE 6166 [sym_label]; STATE 15139 [sym__statementsTr]; STATE 8019 [sym__expr;
   sym_exprConditional]; STATE 7478 [sym__ref; sym_lambda; sym_inherited; sym_exprDot;
   sym_exprDeref; sym_exprAs; sym_exprTpl; sym_exprSubscript; sym_exprCall];
   STATE 8019 [sym_exprBinary; sym_exprUnary]; STATE 7478 [sym_exprParens; sym_exprBrackets;
   sym__literal; sym_literalString]; STATE 6664 [sym__literalString; sym_literalChar];
   STATE 7478 [sym_literalNumber]; STATE 7742 [sym__literalInt; sym__literalFloat];
   STATE 1380 [sym__ppIf]; STATE 6327 [sym__ppStatementBlock];
   STATE 11840 [aux_sym_labeledStatement_repeat1]; STATE 863 [aux_sym__statementsTr_repeat1];
   STATE 6664 [aux_sym_literalString_repeat1]; ACTIONS 397 [anon_sym_SEMI];
   ACTIONS 399 [anon_sym_LBRACK]; ACTIONS 401 [anon_sym_LPAREN];
   ACTIONS 403 [aux_sym__literalString_token1]; ACTIONS 405 [anon_sym_POUND];
   ACTIONS 407 [aux_sym__literalInt_token1]; ACTIONS 409 [aux_sym__literalInt_token2;
   aux_sym__literalInt_token3]; ACTIONS 407 [aux_sym__literalFloat_token1];
   ACTIONS 411 [aux_sym_ppUsesBlock_token1]; ACTIONS 413 [sym_kAdd; sym_kSub];
   ACTIONS 415 [sym_kAt]; ACTIONS 417 [sym_kTrue; sym_kFalse]; ACTIONS 419 [sym_labelNumber];
   ACTIONS 3 [sym__space]; ACTIONS 5 [sym_ppDirective]; ACTIONS 3 [sym_comment];
   ACTIONS 417 [sym_ppFragmentExpr]; ACTIONS 397 [sym_ppFragmentStmt];
   ACTIONS 403 [sym__literalStringMultiline]; ACTIONS 421 [sym_identifier];
   ACTIONS 423 [sym_kSpecialize]; ACTIONS 427 [sym_kAsm]; ACTIONS 429 [sym_kBegin];
   ACTIONS 431 [sym_kCase]; ACTIONS 433 [sym_kConst]; ACTIONS 1314 [sym_kEnd];
   ACTIONS 437 [sym_kFor]; ACTIONS 439 [sym_kFunction]; ACTIONS 441 [sym_kGoto];
   ACTIONS 443 [sym_kIf]; ACTIONS 445 [sym_kInherited]; ACTIONS 417 [sym_kNil];
   ACTIONS 415 [sym_kNot]; ACTIONS 439 [sym_kProcedure]; ACTIONS 447 [sym_kRaise];
   ACTIONS 449 [sym_kRepeat]; ACTIONS 451 [sym_kString]; ACTIONS 453 [sym_kTry];
   ACTIONS 455 [sym_kVar]; ACTIONS 457 [sym_kWhile]; ACTIONS 459 [sym_kWith]].

(** State 632. *)
Definition ts_parse_table_632 : parse_row :=
  [STATE 6213 [sym_if]; STATE 6327 [sym_ifElse; sym_while; sym_repeat; sym_for; sym_foreach;
   sym_try; sym_case; sym_block; sym_asm; sym_with; sym_raise; sym_statement; sym_goto;
   sym__statement]; STATE 14241 [sym_ifTr; sym_ifElseTr; sym_whileTr; sym_repeatTr; sym_forTr;
   sym_foreachTr; sym_tryTr; sym_caseTr]; STATE 14251 [sym_blockTr]; STATE 14241 [sym_asmTr;
   sym_withTr; sym_raiseTr; sym_statementTr; sym_gotoTr; sym__statementTr];
   STATE 13915 [sym_assignment]; STATE 11785 [sym_varAssignDef]; STATE 13915 [sym_varDef;
   sym_constDef]; STATE 6166 [sym_label]; STATE 14241 [sym__statementsTr]; STATE 8019 [sym__expr;
   sym_exprConditional]; STATE 7478 [sym__ref; sym_lambda; sym_inherited; sym_exprDot;
   sym_exprDeref; sym_exprAs; sym_exprTpl; sym_exprSubscript; sym_exprCall];
   STATE 8019 [sym_exprBinary; sym_exprUnary]; STATE 7478 [sym_exprParens; sym_exprBrackets;
   sym__literal; sym_literalString]; STATE 6664 [sym__literalString; sym_literalChar];
   STATE 7478 [sym_literalNumber]; STATE 7742 [sym__literalInt; sym__literalFloat];
   STATE 1380 [sym__ppIf]; STATE 6327 [sym__ppStatementBlock];
   STATE 11840 [aux_sym_labeledStatement_repeat1]; STATE 863 [aux_sym__statementsTr_repeat1];
   STATE 6664 [aux_sym_literalString_repeat1]; ACTIONS 397 [anon_sym_SEMI];
   ACTIONS 399 [anon_sym_LBRACK]; ACTIONS 401 [anon_sym_LPAREN];
   ACTIONS 403 [aux_sym__literalString_token1]; ACTIONS 405 [anon_sym_POUND];
   ACTIONS 407 [aux_sym__literalInt_token1]; ACTIONS 409 [aux_sym__literalInt_token2;
   aux_sym__literalInt_token3]; ACTIONS 407 [aux_sym__literalFloat_token1];
   ACTIONS 411 [aux_sym_ppUsesBlock_token1]; ACTIONS 413 [sym_kAdd; sym_kSub];
   ACTIONS 415 [sym_kAt]; ACTIONS 417 [sym_kTrue; sym_kFalse]; ACTIONS 419 [sym_labelNumber];
   ACTIONS 3 [sym__space]; ACTIONS 5 [sym_ppDirective]; ACTIONS 3 [sym_comment];
   ACTIONS 417 [sym_ppFragmentExpr]; ACTIONS 397 [sym_ppFragmentStmt];
   ACTIONS 403 [sym__literalStringMultiline]; ACTIONS 421 [sym_identifier];
   ACTIONS 423 [sym_kSpecialize]; ACTIONS 427 [sym_kAsm]; ACTIONS 429 [sym_kBegin];
   ACTIONS 431 [sym_kCase]; ACTIONS 433 [sym_kConst]; ACTIONS 3647 [sym_kEnd];
   ACTIONS 437 [sym_kFor]; ACTIONS 439 [sym_kFunction]; ACTIONS 441 [sym_kGoto];
   ACTIONS 443 [sym_kIf]; ACTIONS 445 [sym_kInherited]; ACTIONS 417 [sym_kNil];
   ACTIONS 415 [sym_kNot]; ACTIONS 439 [sym_kProcedure]; ACTIONS 447 [sym_kRaise];
   ACTIONS 449 [sym_kRepeat]; ACTIONS 451 [sym_kString]; ACTIONS 453 [sym_kTry];
   ACTIONS 455 [sym_kVar]; ACTIONS 457 [sym_kWhile]; ACTIONS 459 [sym_kWith]].

(** State 633. *)
Definition ts_parse_table_633 : parse_row :=
  [STATE 6213 [sym_if]; STATE 6327 [sym_ifElse; sym_while; sym_repeat; sym_for; sym_foreach;
   sym_try; sym_case; sym_block; sym_asm; sym_with; sym_raise; sym_statement; sym_goto;
   sym__statement]; STATE 15146 [sym_ifTr; sym_ifElseTr; sym_whileTr; sym_repeatTr; sym_forTr;
   sym_foreachTr; sym_tryTr; sym_caseTr]; STATE 14251 [sym_blockTr]; STATE 15146 [sym_asmTr;
   sym_withTr; sym_raiseTr; sym_statementTr; sym_gotoTr; sym__statementTr];
   STATE 13915 [sym_assignment]; STATE 11785 [sym_varAssignDef]; STATE 13915 [sym_varDef;
   sym_constDef]; STATE 6166 [sym_label]; STATE 15146 [sym__statementsTr]; STATE 8019 [sym__expr;
   sym_exprConditional]; STATE 7478 [sym__ref; sym_lambda; sym_inherited; sym_exprDot;
   sym_exprDeref; sym_exprAs; sym_exprTpl; sym_exprSubscript; sym_exprCall];
   STATE 8019 [sym_exprBinary; sym_exprUnary]; STATE 7478 [sym_exprParens; sym_exprBrackets;
   sym__literal; sym_literalString]; STATE 6664 [sym__literalString; sym_literalChar];
   STATE 7478 [sym_literalNumber]; STATE 7742 [sym__literalInt; sym__literalFloat];
   STATE 1380 [sym__ppIf]; STATE 6327 [sym__ppStatementBlock];
   STATE 11840 [aux_sym_labeledStatement_repeat1]; STATE 863 [aux_sym__statementsTr_repeat1];
   STATE 6664 [aux_sym_literalString_repeat1]; ACTIONS 397 [anon_sym_SEMI];
   ACTIONS 399 [anon_sym_LBRACK]; ACTIONS 401 [anon_sym_LPAREN];
   ACTIONS 403 [aux_sym__literalString_token1]; ACTIONS 405 [anon_sym_POUND];
   ACTIONS 407 [aux_sym__literalInt_token1]; ACTIONS 409 [aux_sym__literalInt_token2;
   aux_sym__literalInt_token3]; ACTIONS 407 [aux_sym__literalFloat_token1];
   ACTIONS 411 [aux_sym_ppUsesBlock_token1]; ACTIONS 413 [sym_kAdd; sym_kSub];
   ACTIONS 415 [sym_kAt]; ACTIONS 417 [sym_kTrue; sym_kFalse]; ACTIONS 419 [sym_labelNumber];
   ACTIONS 3 [sym__space]; ACTIONS 5 [sym_ppDirective]; ACTIONS 3 [sym_comment];
   ACTIONS 417 [sym_ppFragmentExpr]; ACTIONS 397 [sym_ppFragmentStmt];
   ACTIONS 403 [sym__literalStringMultiline]; ACTIONS 421 [sym_identifier];
   ACTIONS 423 [sym_kSpecialize]; ACTIONS 427 [sym_kAsm]; ACTIONS 429 [sym_kBegin];
   ACTIONS 431 [sym_kCase]; ACTIONS 433 [sym_kConst]; ACTIONS 3649 [sym_kEnd];
   ACTIONS 437 [sym_kFor]; ACTIONS 439 [sym_kFunction]; ACTIONS 441 [sym_kGoto];
   ACTIONS 443 [sym_kIf]; ACTIONS 445 [sym_kInherited]; ACTIONS 417 [sym_kNil];
   ACTIONS 415 [sym_kNot]; ACTIONS 439 [sym_kProcedure]; ACTIONS 447 [sym_kRaise];
   ACTIONS 449 [sym_kRepeat]; ACTIONS 451 [sym_kString]; ACTIONS 453 [sym_kTry];
   ACTIONS 455 [sym_kVar]; ACTIONS 457 [sym_kWhile]; ACTIONS 459 [sym_kWith]].

(** State 634. *)
Definition ts_parse_table_634 : parse_row :=
  [STATE 6213 [sym_if]; STATE 6327 [sym_ifElse; sym_while; sym_repeat; sym_for; sym_foreach;
   sym_try; sym_case; sym_block; sym_asm; sym_with; sym_raise; sym_statement; sym_goto;
   sym__statement]; STATE 14282 [sym_ifTr; sym_ifElseTr; sym_whileTr; sym_repeatTr; sym_forTr;
   sym_foreachTr; sym_tryTr; sym_caseTr]; STATE 14251 [sym_blockTr]; STATE 14282 [sym_asmTr;
   sym_withTr; sym_raiseTr; sym_statementTr; sym_gotoTr; sym__statementTr];
   STATE 13915 [sym_assignment]; STATE 11785 [sym_varAssignDef]; STATE 13915 [sym_varDef;
   sym_constDef]; STATE 6166 [sym_label]; STATE 14282 [sym__statementsTr]; STATE 8019 [sym__expr;
   sym_exprConditional]; STATE 7478 [sym__ref; sym_lambda; sym_inherited; sym_exprDot;
   sym_exprDeref; sym_exprAs; sym_exprTpl; sym_exprSubscript; sym_exprCall];
   STATE 8019 [sym_exprBinary; sym_exprUnary]; STATE 7478 [sym_exprParens; sym_exprBrackets;
   sym__literal; sym_literalString]; STATE 6664 [sym__literalString; sym_literalChar];
   STATE 7478 [sym_literalNumber]; STATE 7742 [sym__literalInt; sym__literalFloat];
   STATE 1380 [sym__ppIf]; STATE 6327 [sym__ppStatementBlock];
   STATE 11840 [aux_sym_labeledStatement_repeat1]; STATE 863 [aux_sym__statementsTr_repeat1];
   STATE 6664 [aux_sym_literalString_repeat1]; ACTIONS 397 [anon_sym_SEMI];
   ACTIONS 399 [anon_sym_LBRACK]; ACTIONS 401 [anon_sym_LPAREN];
   ACTIONS 403 [aux_sym__literalString_token1]; ACTIONS 405 [anon_sym_POUND];
   ACTIONS 407 [aux_sym__literalInt_token1]; ACTIONS 409 [aux_sym__literalInt_token2;
   aux_sym__literalInt_token3]; ACTIONS 407 [aux_sym__literalFloat_token1];
   ACTIONS 411 [aux_sym_ppUsesBlock_token1]; ACTIONS 413 [sym_kAdd; sym_kSub];
   ACTIONS 415 [sym_kAt]; ACTIONS 417 [sym_kTrue; sym_kFalse]; ACTIONS 419 [sym_labelNumber];
   ACTIONS 3 [sym__space]; ACTIONS 5 [sym_ppDirective]; ACTIONS 3 [sym_comment];
   ACTIONS 417 [sym_ppFragmentExpr]; ACTIONS 397 [sym_ppFragmentStmt];
   ACTIONS 403 [sym__literalStringMultiline]; ACTIONS 421 [sym_identifier];
   ACTIONS 423 [sym_kSpecialize]; ACTIONS 427 [sym_kAsm]; ACTIONS 429 [sym_kBegin];
   ACTIONS 431 [sym_kCase]; ACTIONS 433 [sym_kConst]; ACTIONS 3651 [sym_kEnd];
   ACTIONS 437 [sym_kFor]; ACTIONS 439 [sym_kFunction]; ACTIONS 441 [sym_kGoto];
   ACTIONS 443 [sym_kIf]; ACTIONS 445 [sym_kInherited]; ACTIONS 417 [sym_kNil];
   ACTIONS 415 [sym_kNot]; ACTIONS 439 [sym_kProcedure]; ACTIONS 447 [sym_kRaise];
   ACTIONS 449 [sym_kRepeat]; ACTIONS 451 [sym_kString]; ACTIONS 453 [sym_kTry];
   ACTIONS 455 [sym_kVar]; ACTIONS 457 [sym_kWhile]; ACTIONS 459 [sym_kWith]].

(** State 635. *)
Definition ts_parse_table_635 : parse_row :=
  [STATE 17 [sym__ppIf]; STATE 658 [sym_ppBlock; sym_declVar]; STATE 5427 [sym_rttiAttributes];
   STATE 658 [aux_sym_declVars_repeat1]; STATE 5428 [aux_sym_declVar_repeat1];
   STATE 4094 [aux_sym_rttiAttributes_repeat2]; ACTIONS 3631 [anon_sym_SEMI; anon_sym_COMMA];
   ACTIONS 3633 [anon_sym_LBRACK]; ACTIONS 3636 [anon_sym_LPAREN];
   ACTIONS 3631 [aux_sym__literalString_token1; anon_sym_POUND];
   ACTIONS 3636 [aux_sym__literalInt_token1]; ACTIONS 3631 [aux_sym__literalInt_token2;
   aux_sym__literalInt_token3]; ACTIONS 3636 [aux_sym__literalFloat_token1];
   ACTIONS 3638 [aux_sym_ppUsesBlock_token1]; ACTIONS 3631 [aux_sym_ppUsesBlock_token2;
   aux_sym_ppUsesBlock_token3]; ACTIONS 3636 [sym_kAdd; sym_kSub]; ACTIONS 3631 [sym_kAt;
   sym_kTrue; sym_kFalse]; ACTIONS 3 [sym__space]; ACTIONS 5 [sym_ppDirective];
   ACTIONS 3 [sym_comment]; ACTIONS 3631 [sym_ppFragmentExpr; sym__literalStringMultiline];
   ACTIONS 3641 [sym_identifier]; ACTIONS 3644 [sym_kDefault; sym_kNodefault; sym_kDispId];
   ACTIONS 3631 [sym_kGeneric; sym_kSpecialize]; ACTIONS 3644 [sym_kOperator; sym_kPublic;
   sym_kStatic; sym_kVirtual; sym_kAbstract; sym_kDynamic; sym_kOverride; sym_kOverload;
   sym_kReintroduce; sym_kStdcall; sym_kCdecl; sym_kCppdecl; sym_kPascal; sym_kRegister;
   sym_kMwpascal; sym_kMessage; sym_kDeprecated; sym_kExperimental; sym_kPlatform;
   sym_kUnimplemented; sym_kCvar; sym_kExport; sym_kFar; sym_kNear; sym_kSafecall;
   sym_kAssembler; sym_kNostackframe; sym_kInterrupt; sym_kNoreturn; sym_kIocheck; sym_kLocal;
   sym_kHardfloat; sym_kSoftfloat; sym_kMs_abi_default; sym_kMs_abi_cdecl; sym_kSaveregisters;
   sym_kSysv_abi_default; sym_kSysv_abi_cdecl; sym_kVectorcall; sym_kVarargs; sym_kWinapi;
   sym_kAlias]; ACTIONS 3631 [sym_kAsm; sym_kBegin; sym_kCase; sym_kClass; sym_kConst;
   sym_kConstructor; sym_kDestructor; sym_kExports; sym_kFor; sym_kFunction; sym_kGoto; sym_kIf;
   sym_kInherited; sym_kLabel; sym_kNil; sym_kNot; sym_kProcedure; sym_kProperty; sym_kRaise;
   sym_kRepeat; sym_kResourcestring; sym_kString; sym_kThreadvar; sym_kTry; sym_kType; sym_kUses;
   sym_kVar; sym_kWhile; sym_kWith]].

(** State 636. *)
Definition ts_parse_table_636 : parse_row :=
  [STATE 6213 [sym_if]; STATE 6327 [sym_ifElse; sym_while; sym_repeat; sym_for; sym_foreach;
   sym_try; sym_case; sym_block; sym_asm; sym_with; sym_raise; sym_statement; sym_goto;
   sym__statement]; STATE 15174 [sym_ifTr; sym_ifElseTr; sym_whileTr; sym_repeatTr; sym_forTr;
   sym_foreachTr; sym_tryTr; sym_caseTr]; STATE 14251 [sym_blockTr]; STATE 15174 [sym_asmTr;
   sym_withTr; sym_raiseTr; sym_statementTr; sym_gotoTr; sym__statementTr];
   STATE 13915 [sym_assignment]; STATE 11785 [sym_varAssignDef]; STATE 13915 [sym_varDef;
   sym_constDef]; STATE 6166 [sym_label]; STATE 15174 [sym__statementsTr]; STATE 8019 [sym__expr;
   sym_exprConditional]; STATE 7478 [sym__ref; sym_lambda; sym_inherited; sym_exprDot;
   sym_exprDeref; sym_exprAs; sym_exprTpl; sym_exprSubscript; sym_exprCall];
   STATE 8019 [sym_exprBinary; sym_exprUnary]; STATE 7478 [sym_exprParens; sym_exprBrackets;
   sym__literal; sym_literalString]; STATE 6664 [sym__literalString; sym_literalChar];
   STATE 7478 [sym_literalNumber]; STATE 7742 [sym__literalInt; sym__literalFloat];
   STATE 1380 [sym__ppIf]; STATE 6327 [sym__ppStatementBlock];
   STATE 11840 [aux_sym_labeledStatement_repeat1]; STATE 863 [aux_sym__statementsTr_repeat1];
   STATE 6664 [aux_sym_literalString_repeat1]; ACTIONS 397 [anon_sym_SEMI];
   ACTIONS 399 [anon_sym_LBRACK]; ACTIONS 401 [anon_sym_LPAREN];
   ACTIONS 403 [aux_sym__literalString_token1]; ACTIONS 405 [anon_sym_POUND];
   ACTIONS 407 [aux_sym__literalInt_token1]; ACTIONS 409 [aux_sym__literalInt_token2;
   aux_sym__literalInt_token3]; ACTIONS 407 [aux_sym__literalFloat_token1];
   ACTIONS 411 [aux_sym_ppUsesBlock_token1]; ACTIONS 413 [sym_kAdd; sym_kSub];
   ACTIONS 415 [sym_kAt]; ACTIONS 417 [sym_kTrue; sym_kFalse]; ACTIONS 419 [sym_labelNumber];
   ACTIONS 3 [sym__space]; ACTIONS 5 [sym_ppDirective]; ACTIONS 3 [sym_comment];
   ACTIONS 417 [sym_ppFragmentExpr]; ACTIONS 397 [sym_ppFragmentStmt];
   ACTIONS 403 [sym__literalStringMultiline]; ACTIONS 421 [sym_identifier];
   ACTIONS 423 [sym_kSpecialize]; ACTIONS 427 [sym_kAsm]; ACTIONS 429 [sym_kBegin];
   ACTIONS 431 [sym_kCase]; ACTIONS 433 [sym_kConst]; ACTIONS 3653 [sym_kEnd];
   ACTIONS 437 [sym_kFor]; ACTIONS 439 [sym_kFunction]; ACTIONS 441 [sym_kGoto];
   ACTIONS 443 [sym_kIf]; ACTIONS 445 [sym_kInherited]; ACTIONS 417 [sym_kNil];
   ACTIONS 415 [sym_kNot]; ACTIONS 439 [sym_kProcedure]; ACTIONS 447 [sym_kRaise];
   ACTIONS 449 [sym_kRepeat]; ACTIONS 451 [sym_kString]; ACTIONS 453 [sym_kTry];
   ACTIONS 455 [sym_kVar]; ACTIONS 457 [sym_kWhile]; ACTIONS 459 [sym_kWith]].

(** State 637. *)
Definition ts_parse_table_637 : parse_row :=
  [STATE 6213 [sym_if]; STATE 6327 [sym_ifElse; sym_while; sym_repeat; sym_for; sym_foreach;
   sym_try; sym_case; sym_block; sym_asm; sym_with; sym_raise; sym_statement; sym_goto;
   sym__statement]; STATE 15195 [sym_ifTr; sym_ifElseTr; sym_whileTr; sym_repeatTr; sym_forTr;
   sym_foreachTr; sym_tryTr; sym_caseTr]; STATE 14251 [sym_blockTr]; STATE 15195 [sym_asmTr;
   sym_withTr; sym_raiseTr; sym_statementTr; sym_gotoTr; sym__statementTr];
   STATE 13915 [sym_assignment]; STATE 11785 [sym_varAssignDef]; STATE 13915 [sym_varDef;
   sym_constDef]; STATE 6166 [sym_label]; STATE 15195 [sym__statementsTr]; STATE 8019 [sym__expr;
   sym_exprConditional]; STATE 7478 [sym__ref; sym_lambda; sym_inherited; sym_exprDot;
   sym_exprDeref; sym_exprAs; sym_exprTpl; sym_exprSubscript; sym_exprCall];
   STATE 8019 [sym_exprBinary; sym_exprUnary]; STATE 7478 [sym_exprParens; sym_exprBrackets;
   sym__literal; sym_literalString]; STATE 6664 [sym__literalString; sym_literalChar];
   STATE 7478 [sym_literalNumber]; STATE 7742 [sym__literalInt; sym__literalFloat];
   STATE 1380 [sym__ppIf]; STATE 6327 [sym__ppStatementBlock];
   STATE 11840 [aux_sym_labeledStatement_repeat1]; STATE 863 [aux_sym__statementsTr_repeat1];
   STATE 6664 [aux_sym_literalString_repeat1]; ACTIONS 397 [anon_sym_SEMI];
   ACTIONS 399 [anon_sym_LBRACK]; ACTIONS 401 [anon_sym_LPAREN];
   ACTIONS 403 [aux_sym__literalString_token1]; ACTIONS 405 [anon_sym_POUND];
   ACTIONS 407 [aux_sym__literalInt_token1]; ACTIONS 409 [aux_sym__literalInt_token2;
   aux_sym__literalInt_token3]; ACTIONS 407 [aux_sym__literalFloat_token1];
   ACTIONS 411 [aux_sym_ppUsesBlock_token1]; ACTIONS 413 [sym_kAdd; sym_kSub];
   ACTIONS 415 [sym_kAt]; ACTIONS 417 [sym_kTrue; sym_kFalse]; ACTIONS 419 [sym_labelNumber];
   ACTIONS 3 [sym__space]; ACTIONS 5 [sym_ppDirective]; ACTIONS 3 [sym_comment];
   ACTIONS 417 [sym_ppFragmentExpr]; ACTIONS 397 [sym_ppFragmentStmt];
   ACTIONS 403 [sym__literalStringMultiline]; ACTIONS 421 [sym_identifier];
   ACTIONS 423 [sym_kSpecialize]; ACTIONS 427 [sym_kAsm]; ACTIONS 429 [sym_kBegin];
   ACTIONS 431 [sym_kCase]; ACTIONS 433 [sym_kConst]; ACTIONS 3655 [sym_kEnd];
   ACTIONS 437 [sym_kFor]; ACTIONS 439 [sym_kFunction]; ACTIONS 441 [sym_kGoto];
   ACTIONS 443 [sym_kIf]; ACTIONS 445 [sym_kInherited]; ACTIONS 417 [sym_kNil];
   ACTIONS 415 [sym_kNot]; ACTIONS 439 [sym_kProcedure]; ACTIONS 447 [sym_kRaise];
   ACTIONS 449 [sym_kRepeat]; ACTIONS 451 [sym_kString]; ACTIONS 453 [sym_kTry];
   ACTIONS 455 [sym_kVar]; ACTIONS 457 [sym_kWhile]; ACTIONS 459 [sym_kWith]].

(** State 638. *)
Definition ts_parse_table_638 : parse_row :=
  [STATE 6213 [sym_if]; STATE 6327 [sym_ifElse; sym_while; sym_repeat; sym_for; sym_foreach;
   sym_try; sym_case; sym_block; sym_asm; sym_with; sym_raise; sym_statement; sym_goto;
   sym__statement]; STATE 14368 [sym_ifTr; sym_ifElseTr; sym_whileTr; sym_repeatTr; sym_forTr;
   sym_foreachTr; sym_tryTr; sym_caseTr]; STATE 14251 [sym_blockTr]; STATE 14368 [sym_asmTr;
   sym_withTr; sym_raiseTr; sym_statementTr; sym_gotoTr; sym__statementTr];
   STATE 13915 [sym_assignment]; STATE 11785 [sym_varAssignDef]; STATE 13915 [sym_varDef;
   sym_constDef]; STATE 6166 [sym_label]; STATE 14368 [sym__statementsTr]; STATE 8019 [sym__expr;
   sym_exprConditional]; STATE 7478 [sym__ref; sym_lambda; sym_inherited; sym_exprDot;
   sym_exprDeref; sym_exprAs; sym_exprTpl; sym_exprSubscript; sym_exprCall];
   STATE 8019 [sym_exprBinary; sym_exprUnary]; STATE 7478 [sym_exprParens; sym_exprBrackets;
   sym__literal; sym_literalString]; STATE 6664 [sym__literalString; sym_literalChar];
   STATE 7478 [sym_literalNumber]; STATE 7742 [sym__literalInt; sym__literalFloat];
   STATE 1380 [sym__ppIf]; STATE 6327 [sym__ppStatementBlock];
   STATE 11840 [aux_sym_labeledStatement_repeat1]; STATE 863 [aux_sym__statementsTr_repeat1];
   STATE 6664 [aux_sym_literalString_repeat1]; ACTIONS 397 [anon_sym_SEMI];
   ACTIONS 399 [anon_sym_LBRACK]; ACTIONS 401 [anon_sym_LPAREN];
   ACTIONS 403 [aux_sym__literalString_token1]; ACTIONS 405 [anon_sym_POUND];
   ACTIONS 407 [aux_sym__literalInt_token1]; ACTIONS 409 [aux_sym__literalInt_token2;
   aux_sym__literalInt_token3]; ACTIONS 407 [aux_sym__literalFloat_token1];
   ACTIONS 411 [aux_sym_ppUsesBlock_token1]; ACTIONS 413 [sym_kAdd; sym_kSub];
   ACTIONS 415 [sym_kAt]; ACTIONS 417 [sym_kTrue; sym_kFalse]; ACTIONS 419 [sym_labelNumber];
   ACTIONS 3 [sym__space]; ACTIONS 5 [sym_ppDirective]; ACTIONS 3 [sym_comment];
   ACTIONS 417 [sym_ppFragmentExpr]; ACTIONS 397 [sym_ppFragmentStmt];
   ACTIONS 403 [sym__literalStringMultiline]; ACTIONS 421 [sym_identifier];
   ACTIONS 423 [sym_kSpecialize]; ACTIONS 427 [sym_kAsm]; ACTIONS 429 [sym_kBegin];
   ACTIONS 431 [sym_kCase]; ACTIONS 433 [sym_kConst]; ACTIONS 2773 [sym_kEnd];
   ACTIONS 437 [sym_kFor]; ACTIONS 439 [sym_kFunction]; ACTIONS 441 [sym_kGoto];
   ACTIONS 443 [sym_kIf]; ACTIONS 445 [sym_kInherited]; ACTIONS 417 [sym_kNil];
   ACTIONS 415 [sym_kNot]; ACTIONS 439 [sym_kProcedure]; ACTIONS 447 [sym_kRaise];
   ACTIONS 449 [sym_kRepeat]; ACTIONS 451 [sym_kString]; ACTIONS 453 [sym_kTry];
   ACTIONS 455 [sym_kVar]; ACTIONS 457 [sym_kWhile]; ACTIONS 459 [sym_kWith]].

(** State 639. *)
Definition ts_parse_table_639 : parse_row :=
  [STATE 6213 [sym_if]; STATE 6327 [sym_ifElse; sym_while; sym_repeat; sym_for; sym_foreach;
   sym_try; sym_case; sym_block; sym_asm; sym_with; sym_raise; sym_statement; sym_goto;
   sym__statement]; STATE 14371 [sym_ifTr; sym_ifElseTr; sym_whileTr; sym_repeatTr; sym_forTr;
   sym_foreachTr; sym_tryTr; sym_caseTr]; STATE 14251 [sym_blockTr]; STATE 14371 [sym_asmTr;
   sym_withTr; sym_raiseTr; sym_statementTr; sym_gotoTr; sym__statementTr];
   STATE 13915 [sym_assignment]; STATE 11785 [sym_varAssignDef]; STATE 13915 [sym_varDef;
   sym_constDef]; STATE 6166 [sym_label]; STATE 14371 [sym__statementsTr]; STATE 8019 [sym__expr;
   sym_exprConditional]; STATE 7478 [sym__ref; sym_lambda; sym_inherited; sym_exprDot;
   sym_exprDeref; sym_exprAs; sym_exprTpl; sym_exprSubscript; sym_exprCall];
   STATE 8019 [sym_exprBinary; sym_exprUnary]; STATE 7478 [sym_exprParens; sym_exprBrackets;
   sym__literal; sym_literalString]; STATE 6664 [sym__literalString; sym_literalChar];
   STATE 7478 [sym_literalNumber]; STATE 7742 [sym__literalInt; sym__literalFloat];
   STATE 1380 [sym__ppIf]; STATE 6327 [sym__ppStatementBlock];
   STATE 11840 [aux_sym_labeledStatement_repeat1]; STATE 863 [aux_sym__statementsTr_repeat1];
   STATE 6664 [aux_sym_literalString_repeat1]; ACTIONS 397 [anon_sym_SEMI];
   ACTIONS 399 [anon_sym_LBRACK]; ACTIONS 401 [anon_sym_LPAREN];
   ACTIONS 403 [aux_sym__literalString_token1]; ACTIONS 405 [anon_sym_POUND];
   ACTIONS 407 [aux_sym__literalInt_token1]; ACTIONS 409 [aux_sym__literalInt_token2;
   aux_sym__literalInt_token3]; ACTIONS 407 [aux_sym__literalFloat_token1];
   ACTIONS 411 [aux_sym_ppUsesBlock_token1]; ACTIONS 413 [sym_kAdd; sym_kSub];
   ACTIONS 415 [sym_kAt]; ACTIONS 417 [sym_kTrue; sym_kFalse]; ACTIONS 419 [sym_labelNumber];
   ACTIONS 3 [sym__space]; ACTIONS 5 [sym_ppDirective]; ACTIONS 3 [sym_comment];
   ACTIONS 417 [sym_ppFragmentExpr]; ACTIONS 397 [sym_ppFragmentStmt];
   ACTIONS 403 [sym__literalStringMultiline]; ACTIONS 421 [sym_identifier];
   ACTIONS 423 [sym_kSpecialize]; ACTIONS 427 [sym_kAsm]; ACTIONS 429 [sym_kBegin];
   ACTIONS 431 [sym_kCase]; ACTIONS 433 [sym_kConst]; ACTIONS 2777 [sym_kEnd];
   ACTIONS 437 [sym_kFor]; ACTIONS 439 [sym_kFunction]; ACTIONS 441 [sym_kGoto];
   ACTIONS 443 [sym_kIf]; ACTIONS 445 [sym_kInherited]; ACTIONS 417 [sym_kNil];
   ACTIONS 415 [sym_kNot]; ACTIONS 439 [sym_kProcedure]; ACTIONS 447 [sym_kRaise];
   ACTIONS 449 [sym_kRepeat]; ACTIONS 451 [sym_kString]; ACTIONS 453 [sym_kTry];
   ACTIONS 455 [sym_kVar]; ACTIONS 457 [sym_kWhile]; ACTIONS 459 [sym_kWith]].

(** State 640. *)
Definition ts_parse_table_640 : parse_row :=
  [STATE 6213 [sym_if]; STATE 6327 [sym_ifElse; sym_while; sym_repeat; sym_for; sym_foreach;
   sym_try; sym_case; sym_block; sym_asm; sym_with; sym_raise; sym_statement; sym_goto;
   sym__statement]; STATE 14463 [sym_ifTr; sym_ifElseTr; sym_whileTr; sym_repeatTr; sym_forTr;
   sym_foreachTr; sym_tryTr; sym_caseTr]; STATE 14251 [sym_blockTr]; STATE 14463 [sym_asmTr;
   sym_withTr; sym_raiseTr; sym_statementTr; sym_gotoTr; sym__statementTr];
   STATE 13915 [sym_assignment]; STATE 11785 [sym_varAssignDef]; STATE 13915 [sym_varDef;
   sym_constDef]; STATE 6166 [sym_label]; STATE 14463 [sym__statementsTr]; STATE 8019 [sym__expr;
   sym_exprConditional]; STATE 7478 [sym__ref; sym_lambda; sym_inherited; sym_exprDot;
   sym_exprDeref; sym_exprAs; sym_exprTpl; sym_exprSubscript; sym_exprCall];
   STATE 8019 [sym_exprBinary; sym_exprUnary]; STATE 7478 [sym_exprParens; sym_exprBrackets;
   sym__literal; sym_literalString]; STATE 6664 [sym__literalString; sym_literalChar];
   STATE 7478 [sym_literalNumber]; STATE 7742 [sym__literalInt; sym__literalFloat];
   STATE 1380 [sym__ppIf]; STATE 6327 [sym__ppStatementBlock];
   STATE 11840 [aux_sym_labeledStatement_repeat1]; STATE 863 [aux_sym__statementsTr_repeat1];
   STATE 6664 [aux_sym_literalString_repeat1]; ACTIONS 397 [anon_sym_SEMI];
   ACTIONS 399 [anon_sym_LBRACK]; ACTIONS 401 [anon_sym_LPAREN];
   ACTIONS 403 [aux_sym__literalString_token1]; ACTIONS 405 [anon_sym_POUND];
   ACTIONS 407 [aux_sym__literalInt_token1]; ACTIONS 409 [aux_sym__literalInt_token2;
   aux_sym__literalInt_token3]; ACTIONS 407 [aux_sym__literalFloat_token1];
   ACTIONS 411 [aux_sym_ppUsesBlock_token1]; ACTIONS 413 [sym_kAdd; sym_kSub];
   ACTIONS 415 [sym_kAt]; ACTIONS 417 [sym_kTrue; sym_kFalse]; ACTIONS 419 [sym_labelNumber];
   ACTIONS 3 [sym__space]; ACTIONS 5 [sym_ppDirective]; ACTIONS 3 [sym_comment];
   ACTIONS 417 [sym_ppFragmentExpr]; ACTIONS 397 [sym_ppFragmentStmt];
   ACTIONS 403 [sym__literalStringMultiline]; ACTIONS 421 [sym_identifier];
   ACTIONS 423 [sym_kSpecialize]; ACTIONS 427 [sym_kAsm]; ACTIONS 429 [sym_kBegin];
   ACTIONS 431 [sym_kCase]; ACTIONS 433 [sym_kConst]; ACTIONS 3657 [sym_kEnd];
   ACTIONS 437 [sym_kFor]; ACTIONS 439 [sym_kFunction]; ACTIONS 441 [sym_kGoto];
   ACTIONS 443 [sym_kIf]; ACTIONS 445 [sym_kInherited]; ACTIONS 417 [sym_kNil];
   ACTIONS 415 [sym_kNot]; ACTIONS 439 [sym_kProcedure]; ACTIONS 447 [sym_kRaise];
   ACTIONS 449 [sym_kRepeat]; ACTIONS 451 [sym_kString]; ACTIONS 453 [sym_kTry];
   ACTIONS 455 [sym_kVar]; ACTIONS 457 [sym_kWhile]; ACTIONS 459 [sym_kWith]].

(** State 641. *)
Definition ts_parse_table_641 : parse_row :=
  [STATE 6213 [sym_if]; STATE 6327 [sym_ifElse; sym_while; sym_repeat; sym_for; sym_foreach;
   sym_try; sym_case; sym_block; sym_asm; sym_with; sym_raise; sym_statement; sym_goto;
   sym__statement]; STATE 14373 [sym_ifTr; sym_ifElseTr; sym_whileTr; sym_repeatTr; sym_forTr;
   sym_foreachTr; sym_tryTr; sym_caseTr]; STATE 14251 [sym_blockTr]; STATE 14373 [sym_asmTr;
   sym_withTr; sym_raiseTr; sym_statementTr; sym_gotoTr; sym__statementTr];
   STATE 13915 [sym_assignment]; STATE 11785 [sym_varAssignDef]; STATE 13915 [sym_varDef;
   sym_constDef]; STATE 6166 [sym_label]; STATE 14373 [sym__statementsTr]; STATE 8019 [sym__expr;
   sym_exprConditional]; STATE 7478 [sym__ref; sym_lambda; sym_inherited; sym_exprDot;
   sym_exprDeref; sym_exprAs; sym_exprTpl; sym_exprSubscript; sym_exprCall];
   STATE 8019 [sym_exprBinary; sym_exprUnary]; STATE 7478 [sym_exprParens; sym_exprBrackets;
   sym__literal; sym_literalString]; STATE 6664 [sym__literalString; sym_literalChar];
   STATE 7478 [sym_literalNumber]; STATE 7742 [sym__literalInt; sym__literalFloat];
   STATE 1380 [sym__ppIf]; STATE 6327 [sym__ppStatementBlock];
   STATE 11840 [aux_sym_labeledStatement_repeat1]; STATE 863 [aux_sym__statementsTr_repeat1];
   STATE 6664 [aux_sym_literalString_repeat1]; ACTIONS 397 [anon_sym_SEMI];
   ACTIONS 399 [anon_sym_LBRACK]; ACTIONS 401 [anon_sym_LPAREN];
   ACTIONS 403 [aux_sym__literalString_token1]; ACTIONS 405 [anon_sym_POUND];
   ACTIONS 407 [aux_sym__literalInt_token1]; ACTIONS 409 [aux_sym__literalInt_token2;
   aux_sym__literalInt_token3]; ACTIONS 407 [aux_sym__literalFloat_token1];
   ACTIONS 411 [aux_sym_ppUsesBlock_token1]; ACTIONS 413 [sym_kAdd; sym_kSub];
   ACTIONS 415 [sym_kAt]; ACTIONS 417 [sym_kTrue; sym_kFalse]; ACTIONS 419 [sym_labelNumber];
   ACTIONS 3 [sym__space]; ACTIONS 5 [sym_ppDirective]; ACTIONS 3 [sym_comment];
   ACTIONS 417 [sym_ppFragmentExpr]; ACTIONS 397 [sym_ppFragmentStmt];
   ACTIONS 403 [sym__literalStringMultiline]; ACTIONS 421 [sym_identifier];
   ACTIONS 423 [sym_kSpecialize]; ACTIONS 427 [sym_kAsm]; ACTIONS 429 [sym_kBegin];
   ACTIONS 431 [sym_kCase]; ACTIONS 433 [sym_kConst]; ACTIONS 3659 [sym_kEnd];
   ACTIONS 437 [sym_kFor]; ACTIONS 439 [sym_kFunction]; ACTIONS 441 [sym_kGoto];
   ACTIONS 443 [sym_kIf]; ACTIONS 445 [sym_kInherited]; ACTIONS 417 [sym_kNil];
   ACTIONS 415 [sym_kNot]; ACTIONS 439 [sym_kProcedure]; ACTIONS 447 [sym_kRaise];
   ACTIONS 449 [sym_kRepeat]; ACTIONS 451 [sym_kString]; ACTIONS 453 [sym_kTry];
   ACTIONS 455 [sym_kVar]; ACTIONS 457 [sym_kWhile]; ACTIONS 459 [sym_kWith]].

(** State 642. *)
Definition ts_parse_table_642 : parse_row :=
  [STATE 6213 [sym_if]; STATE 6327 [sym_ifElse; sym_while; sym_repeat; sym_for; sym_foreach;
   sym_try; sym_case; sym_block; sym_asm; sym_with; sym_raise; sym_statement; sym_goto;
   sym__statement]; STATE 14411 [sym_ifTr; sym_ifElseTr; sym_whileTr; sym_repeatTr; sym_forTr;
   sym_foreachTr; sym_tryTr; sym_caseTr]; STATE 14251 [sym_blockTr]; STATE 14411 [sym_asmTr;
   sym_withTr; sym_raiseTr; sym_statementTr; sym_gotoTr; sym__statementTr];
   STATE 13915 [sym_assignment]; STATE 11785 [sym_varAssignDef]; STATE 13915 [sym_varDef;
   sym_constDef]; STATE 6166 [sym_label]; STATE 14411 [sym__statementsTr]; STATE 8019 [sym__expr;
   sym_exprConditional]; STATE 7478 [sym__ref; sym_lambda; sym_inherited; sym_exprDot;
   sym_exprDeref; sym_exprAs; sym_exprTpl; sym_exprSubscript; sym_exprCall];
   STATE 8019 [sym_exprBinary; sym_exprUnary]; STATE 7478 [sym_exprParens; sym_exprBrackets;
   sym__literal; sym_literalString]; STATE 6664 [sym__literalString; sym_literalChar];
   STATE 7478 [sym_literalNumber]; STATE 7742 [sym__literalInt; sym__literalFloat];
   STATE 1380 [sym__ppIf]; STATE 6327 [sym__ppStatementBlock];
   STATE 11840 [aux_sym_labeledStatement_repeat1]; STATE 863 [aux_sym__statementsTr_repeat1];
   STATE 6664 [aux_sym_literalString_repeat1]; ACTIONS 397 [anon_sym_SEMI];
   ACTIONS 399 [anon_sym_LBRACK]; ACTIONS 401 [anon_sym_LPAREN];
   ACTIONS 403 [aux_sym__literalString_token1]; ACTIONS 405 [anon_sym_POUND];
   ACTIONS 407 [aux_sym__literalInt_token1]; ACTIONS 409 [aux_sym__literalInt_token2;
   aux_sym__literalInt_token3]; ACTIONS 407 [aux_sym__literalFloat_token1];
   ACTIONS 411 [aux_sym_ppUsesBlock_token1]; ACTIONS 413 [sym_kAdd; sym_kSub];
   ACTIONS 415 [sym_kAt]; ACTIONS 417 [sym_kTrue; sym_kFalse]; ACTIONS 419 [sym_labelNumber];
   ACTIONS 3 [sym__space]; ACTIONS 5 [sym_ppDirective]; ACTIONS 3 [sym_comment];
   ACTIONS 417 [sym_ppFragmentExpr]; ACTIONS 397 [sym_ppFragmentStmt];
   ACTIONS 403 [sym__literalStringMultiline]; ACTIONS 421 [sym_identifier];
   ACTIONS 423 [sym_kSpecialize]; ACTIONS 427 [sym_kAsm]; ACTIONS 429 [sym_kBegin];
   ACTIONS 431 [sym_kCase]; ACTIONS 433 [sym_kConst]; ACTIONS 3661 [sym_kEnd];
   ACTIONS 437 [sym_kFor]; ACTIONS 439 [sym_kFunction]; ACTIONS 441 [sym_kGoto];
   ACTIONS 443 [sym_kIf]; ACTIONS 445 [sym_kInherited]; ACTIONS 417 [sym_kNil];
   ACTIONS 415 [sym_kNot]; ACTIONS 439 [sym_kProcedure]; ACTIONS 447 [sym_kRaise];
   ACTIONS 449 [sym_kRepeat]; ACTIONS 451 [sym_kString]; ACTIONS 453 [sym_kTry];
   ACTIONS 455 [sym_kVar]; ACTIONS 457 [sym_kWhile]; ACTIONS 459 [sym_kWith]].

(** State 643. *)
Definition ts_parse_table_643 : parse_row :=
  [STATE 6213 [sym_if]; STATE 6327 [sym_ifElse; sym_while; sym_repeat; sym_for; sym_foreach;
   sym_try; sym_case; sym_block; sym_asm; sym_with; sym_raise; sym_statement; sym_goto;
   sym__statement]; STATE 14489 [sym_ifTr; sym_ifElseTr; sym_whileTr; sym_repeatTr; sym_forTr;
   sym_foreachTr; sym_tryTr; sym_caseTr]; STATE 14251 [sym_blockTr]; STATE 14489 [sym_asmTr;
   sym_withTr; sym_raiseTr; sym_statementTr; sym_gotoTr; sym__statementTr];
   STATE 13915 [sym_assignment]; STATE 11785 [sym_varAssignDef]; STATE 13915 [sym_varDef;
   sym_constDef]; STATE 6166 [sym_label]; STATE 14489 [sym__statementsTr]; STATE 8019 [sym__expr;
   sym_exprConditional]; STATE 7478 [sym__ref; sym_lambda; sym_inherited; sym_exprDot;
   sym_exprDeref; sym_exprAs; sym_exprTpl; sym_exprSubscript; sym_exprCall];
   STATE 8019 [sym_exprBinary; sym_exprUnary]; STATE 7478 [sym_exprParens; sym_exprBrackets;
   sym__literal; sym_literalString]; STATE 6664 [sym__literalString; sym_literalChar];
   STATE 7478 [sym_literalNumber]; STATE 7742 [sym__literalInt; sym__literalFloat];
   STATE 1380 [sym__ppIf]; STATE 6327 [sym__ppStatementBlock];
   STATE 11840 [aux_sym_labeledStatement_repeat1]; STATE 863 [aux_sym__statementsTr_repeat1];
   STATE 6664 [aux_sym_literalString_repeat1]; ACTIONS 397 [anon_sym_SEMI];
   ACTIONS 399 [anon_sym_LBRACK]; ACTIONS 401 [anon_sym_LPAREN];
   ACTIONS 403 [aux_sym__literalString_token1]; ACTIONS 405 [anon_sym_POUND];
   ACTIONS 407 [aux_sym__literalInt_token1]; ACTIONS 409 [aux_sym__literalInt_token2;
   aux_sym__literalInt_token3]; ACTIONS 407 [aux_sym__literalFloat_token1];
   ACTIONS 411 [aux_sym_ppUsesBlock_token1]; ACTIONS 413 [sym_kAdd; sym_kSub];
   ACTIONS 415 [sym_kAt]; ACTIONS 417 [sym_kTrue; sym_kFalse]; ACTIONS 419 [sym_labelNumber];
   ACTIONS 3 [sym__space]; ACTIONS 5 [sym_ppDirective]; ACTIONS 3 [sym_comment];
   ACTIONS 417 [sym_ppFragmentExpr]; ACTIONS 397 [sym_ppFragmentStmt];
   ACTIONS 403 [sym__literalStringMultiline]; ACTIONS 421 [sym_identifier];
   ACTIONS 423 [sym_kSpecialize]; ACTIONS 427 [sym_kAsm]; ACTIONS 429 [sym_kBegin];
   ACTIONS 431 [sym_kCase]; ACTIONS 433 [sym_kConst]; ACTIONS 2791 [sym_kEnd];
   ACTIONS 437 [sym_kFor]; ACTIONS 439 [sym_kFunction]; ACTIONS 441 [sym_kGoto];
   ACTIONS 443 [sym_kIf]; ACTIONS 445 [sym_kInherited]; ACTIONS 417 [sym_kNil];
   ACTIONS 415 [sym_kNot]; ACTIONS 439 [sym_kProcedure]; ACTIONS 447 [sym_kRaise];
   ACTIONS 449 [sym_kRepeat]; ACTIONS 451 [sym_kString]; ACTIONS 453 [sym_kTry];
   ACTIONS 455 [sym_kVar]; ACTIONS 457 [sym_kWhile]; ACTIONS 459 [sym_kWith]].

(** State 644. *)
Definition ts_parse_table_644 : parse_row :=
  [STATE 6213 [sym_if]; STATE 6327 [sym_ifElse; sym_while; sym_repeat; sym_for; sym_foreach;
   sym_try; sym_case; sym_block; sym_asm; sym_with; sym_raise; sym_statement; sym_goto;
   sym__statement]; STATE 14492 [sym_ifTr; sym_ifElseTr; sym_whileTr; sym_repeatTr; sym_forTr;
   sym_foreachTr; sym_tryTr; sym_caseTr]; STATE 14251 [sym_blockTr]; STATE 14492 [sym_asmTr;
   sym_withTr; sym_raiseTr; sym_statementTr; sym_gotoTr; sym__statementTr];
   STATE 13915 [sym_assignment]; STATE 11785 [sym_varAssignDef]; STATE 13915 [sym_varDef;
   sym_constDef]; STATE 6166 [sym_label]; STATE 14492 [sym__statementsTr]; STATE 8019 [sym__expr;
   sym_exprConditional]; STATE 7478 [sym__ref; sym_lambda; sym_inherited; sym_exprDot;
   sym_exprDeref; sym_exprAs; sym_exprTpl; sym_exprSubscript; sym_exprCall];
   STATE 8019 [sym_exprBinary; sym_exprUnary]; STATE 7478 [sym_exprParens; sym_exprBrackets;
   sym__literal; sym_literalString]; STATE 6664 [sym__literalString; sym_literalChar];
   STATE 7478 [sym_literalNumber]; STATE 7742 [sym__literalInt; sym__literalFloat];
   STATE 1380 [sym__ppIf]; STATE 6327 [sym__ppStatementBlock];
   STATE 11840 [aux_sym_labeledStatement_repeat1]; STATE 863 [aux_sym__statementsTr_repeat1];
   STATE 6664 [aux_sym_literalString_repeat1]; ACTIONS 397 [anon_sym_SEMI];
   ACTIONS 399 [anon_sym_LBRACK]; ACTIONS 401 [anon_sym_LPAREN];
   ACTIONS 403 [aux_sym__literalString_token1]; ACTIONS 405 [anon_sym_POUND];
   ACTIONS 407 [aux_sym__literalInt_token1]; ACTIONS 409 [aux_sym__literalInt_token2;
   aux_sym__literalInt_token3]; ACTIONS 407 [aux_sym__literalFloat_token1];
   ACTIONS 411 [aux_sym_ppUsesBlock_token1]; ACTIONS 413 [sym_kAdd; sym_kSub];
   ACTIONS 415 [sym_kAt]; ACTIONS 417 [sym_kTrue; sym_kFalse]; ACTIONS 419 [sym_labelNumber];
   ACTIONS 3 [sym__space]; ACTIONS 5 [sym_ppDirective]; ACTIONS 3 [sym_comment];
   ACTIONS 417 [sym_ppFragmentExpr]; ACTIONS 397 [sym_ppFragmentStmt];
   ACTIONS 403 [sym__literalStringMultiline]; ACTIONS 421 [sym_identifier];
   ACTIONS 423 [sym_kSpecialize]; ACTIONS 427 [sym_kAsm]; ACTIONS 429 [sym_kBegin];
   ACTIONS 431 [sym_kCase]; ACTIONS 433 [sym_kConst]; ACTIONS 2795 [sym_kEnd];
   ACTIONS 437 [sym_kFor]; ACTIONS 439 [sym_kFunction]; ACTIONS 441 [sym_kGoto];
   ACTIONS 443 [sym_kIf]; ACTIONS 445 [sym_kInherited]; ACTIONS 417 [sym_kNil];
   ACTIONS 415 [sym_kNot]; ACTIONS 439 [sym_kProcedure]; ACTIONS 447 [sym_kRaise];
   ACTIONS 449 [sym_kRepeat]; ACTIONS 451 [sym_kString]; ACTIONS 453 [sym_kTry];
   ACTIONS 455 [sym_kVar]; ACTIONS 457 [sym_kWhile]; ACTIONS 459 [sym_kWith]].

(** State 645. *)
Definition ts_parse_table_645 : parse_row :=
  [STATE 6213 [sym_if]; STATE 6327 [sym_ifElse; sym_while; sym_repeat; sym_for; sym_foreach;
   sym_try; sym_case; sym_block; sym_asm; sym_with; sym_raise; sym_statement; sym_goto;
   sym__statement]; STATE 15434 [sym_ifTr; sym_ifElseTr; sym_whileTr; sym_repeatTr; sym_forTr;
   sym_foreachTr; sym_tryTr; sym_caseTr]; STATE 14251 [sym_blockTr]; STATE 15434 [sym_asmTr;
   sym_withTr; sym_raiseTr; sym_statementTr; sym_gotoTr; sym__statementTr];
   STATE 13915 [sym_assignment]; STATE 11785 [sym_varAssignDef]; STATE 13915 [sym_varDef;
   sym_constDef]; STATE 6166 [sym_label]; STATE 15434 [sym__statementsTr]; STATE 8019 [sym__expr;
   sym_exprConditional]; STATE 7478 [sym__ref; sym_lambda; sym_inherited; sym_exprDot;
   sym_exprDeref; sym_exprAs; sym_exprTpl; sym_exprSubscript; sym_exprCall];
   STATE 8019 [sym_exprBinary; sym_exprUnary]; STATE 7478 [sym_exprParens; sym_exprBrackets;
   sym__literal; sym_literalString]; STATE 6664 [sym__literalString; sym_literalChar];
   STATE 7478 [sym_literalNumber]; STATE 7742 [sym__literalInt; sym__literalFloat];
   STATE 1380 [sym__ppIf]; STATE 6327 [sym__ppStatementBlock];
   STATE 11840 [aux_sym_labeledStatement_repeat1]; STATE 863 [aux_sym__statementsTr_repeat1];
   STATE 6664 [aux_sym_literalString_repeat1]; ACTIONS 397 [anon_sym_SEMI];
   ACTIONS 399 [anon_sym_LBRACK]; ACTIONS 401 [anon_sym_LPAREN];
   ACTIONS 403 [aux_sym__literalString_token1]; ACTIONS 405 [anon_sym_POUND];
   ACTIONS 407 [aux_sym__literalInt_token1]; ACTIONS 409 [aux_sym__literalInt_token2;
   aux_sym__literalInt_token3]; ACTIONS 407 [aux_sym__literalFloat_token1];
   ACTIONS 411 [aux_sym_ppUsesBlock_token1]; ACTIONS 413 [sym_kAdd; sym_kSub];
   ACTIONS 415 [sym_kAt]; ACTIONS 417 [sym_kTrue; sym_kFalse]; ACTIONS 419 [sym_labelNumber];
   ACTIONS 3 [sym__space]; ACTIONS 5 [sym_ppDirective]; ACTIONS 3 [sym_comment];
   ACTIONS 417 [sym_ppFragmentExpr]; ACTIONS 397 [sym_ppFragmentStmt];
   ACTIONS 403 [sym__literalStringMultiline]; ACTIONS 421 [sym_identifier];
   ACTIONS 423 [sym_kSpecialize]; ACTIONS 427 [sym_kAsm]; ACTIONS 429 [sym_kBegin];
   ACTIONS 431 [sym_kCase]; ACTIONS 433 [sym_kConst]; ACTIONS 1328 [sym_kEnd];
   ACTIONS 437 [sym_kFor]; ACTIONS 439 [sym_kFunction]; ACTIONS 441 [sym_kGoto];
   ACTIONS 443 [sym_kIf]; ACTIONS 445 [sym_kInherited]; ACTIONS 417 [sym_kNil];
   ACTIONS 415 [sym_kNot]; ACTIONS 439 [sym_kProcedure]; ACTIONS 447 [sym_kRaise];
   ACTIONS 449 [sym_kRepeat]; ACTIONS 451 [sym_kString]; ACTIONS 453 [sym_kTry];
   ACTIONS 455 [sym_kVar]; ACTIONS 457 [sym_kWhile]; ACTIONS 459 [sym_kWith]].

(** State 646. *)
Definition ts_parse_table_646 : parse_row :=
  [STATE 6213 [sym_if]; STATE 6327 [sym_ifElse; sym_while; sym_repeat; sym_for; sym_foreach;
   sym_try; sym_case; sym_block; sym_asm; sym_with; sym_raise; sym_statement; sym_goto;
   sym__statement]; STATE 14494 [sym_ifTr; sym_ifElseTr; sym_whileTr; sym_repeatTr; sym_forTr;
   sym_foreachTr; sym_tryTr; sym_caseTr]; STATE 14251 [sym_blockTr]; STATE 14494 [sym_asmTr;
   sym_withTr; sym_raiseTr; sym_statementTr; sym_gotoTr; sym__statementTr];
   STATE 13915 [sym_assignment]; STATE 11785 [sym_varAssignDef]; STATE 13915 [sym_varDef;
   sym_constDef]; STATE 6166 [sym_label]; STATE 14494 [sym__statementsTr]; STATE 8019 [sym__expr;
   sym_exprConditional]; STATE 7478 [sym__ref; sym_lambda; sym_inherited; sym_exprDot;
   sym_exprDeref; sym_exprAs; sym_exprTpl; sym_exprSubscript; sym_exprCall];
   STATE 8019 [sym_exprBinary; sym_exprUnary]; STATE 7478 [sym_exprParens; sym_exprBrackets;
   sym__literal; sym_literalString]; STATE 6664 [sym__literalString; sym_literalChar];
   STATE 7478 [sym_literalNumber]; STATE 7742 [sym__literalInt; sym__literalFloat];
   STATE 1380 [sym__ppIf]; STATE 6327 [sym__ppStatementBlock];
   STATE 11840 [aux_sym_labeledStatement_repeat1]; STATE 863 [aux_sym__statementsTr_repeat1];
   STATE 6664 [aux_sym_literalString_repeat1]; ACTIONS 397 [anon_sym_SEMI];
   ACTIONS 399 [anon_sym_LBRACK]; ACTIONS 401 [anon_sym_LPAREN];
   ACTIONS 403 [aux_sym__literalString_token1]; ACTIONS 405 [anon_sym_POUND];
   ACTIONS 407 [aux_sym__literalInt_token1]; ACTIONS 409 [aux_sym__literalInt_token2;
   aux_sym__literalInt_token3]; ACTIONS 407 [aux_sym__literalFloat_token1];
   ACTIONS 411 [aux_sym_ppUsesBlock_token1]; ACTIONS 413 [sym_kAdd; sym_kSub];
   ACTIONS 415 [sym_kAt]; ACTIONS 417 [sym_kTrue; sym_kFalse]; ACTIONS 419 [sym_labelNumber];
   ACTIONS 3 [sym__space]; ACTIONS 5 [sym_ppDirective]; ACTIONS 3 [sym_comment];
   ACTIONS 417 [sym_ppFragmentExpr]; ACTIONS 397 [sym_ppFragmentStmt];
   ACTIONS 403 [sym__literalStringMultiline]; ACTIONS 421 [sym_identifier];
   ACTIONS 423 [sym_kSpecialize]; ACTIONS 427 [sym_kAsm]; ACTIONS 429 [sym_kBegin];
   ACTIONS 431 [sym_kCase]; ACTIONS 433 [sym_kConst]; ACTIONS 3663 [sym_kEnd];
   ACTIONS 437 [sym_kFor]; ACTIONS 439 [sym_kFunction]; ACTIONS 441 [sym_kGoto];
   ACTIONS 443 [sym_kIf]; ACTIONS 445 [sym_kInherited]; ACTIONS 417 [sym_kNil];
   ACTIONS 415 [sym_kNot]; ACTIONS 439 [sym_kProcedure]; ACTIONS 447 [sym_kRaise];
   ACTIONS 449 [sym_kRepeat]; ACTIONS 451 [sym_kString]; ACTIONS 453 [sym_kTry];
   ACTIONS 455 [sym_kVar]; ACTIONS 457 [sym_kWhile]; ACTIONS 459 [sym_kWith]].

(** State 647. *)
Definition ts_parse_table_647 : parse_row :=
  [STATE 6213 [sym_if]; STATE 6327 [sym_ifElse; sym_while; sym_repeat; sym_for; sym_foreach;
   sym_try; sym_case; sym_block; sym_asm; sym_with; sym_raise; sym_statement; sym_goto;
   sym__statement]; STATE 14527 [sym_ifTr; sym_ifElseTr; sym_whileTr; sym_repeatTr; sym_forTr;
   sym_foreachTr; sym_tryTr; sym_caseTr]; STATE 14251 [sym_blockTr]; STATE 14527 [sym_asmTr;
   sym_withTr; sym_raiseTr; sym_statementTr; sym_gotoTr; sym__statementTr];
   STATE 13915 [sym_assignment]; STATE 11785 [sym_varAssignDef]; STATE 13915 [sym_varDef;
   sym_constDef]; STATE 6166 [sym_label]; STATE 14527 [sym__statementsTr]; STATE 8019 [sym__expr;
   sym_exprConditional]; STATE 7478 [sym__ref; sym_lambda; sym_inherited; sym_exprDot;
   sym_exprDeref; sym_exprAs; sym_exprTpl; sym_exprSubscript; sym_exprCall];
   STATE 8019 [sym_exprBinary; sym_exprUnary]; STATE 7478 [sym_exprParens; sym_exprBrackets;
   sym__literal; sym_literalString]; STATE 6664 [sym__literalString; sym_literalChar];
   STATE 7478 [sym_literalNumber]; STATE 7742 [sym__literalInt; sym__literalFloat];
   STATE 1380 [sym__ppIf]; STATE 6327 [sym__ppStatementBlock];
   STATE 11840 [aux_sym_labeledStatement_repeat1]; STATE 863 [aux_sym__statementsTr_repeat1];
   STATE 6664 [aux_sym_literalString_repeat1]; ACTIONS 397 [anon_sym_SEMI];
   ACTIONS 399 [anon_sym_LBRACK]; ACTIONS 401 [anon_sym_LPAREN];
   ACTIONS 403 [aux_sym__literalString_token1]; ACTIONS 405 [anon_sym_POUND];
   ACTIONS 407 [aux_sym__literalInt_token1]; ACTIONS 409 [aux_sym__literalInt_token2;
   aux_sym__literalInt_token3]; ACTIONS 407 [aux_sym__literalFloat_token1];
   ACTIONS 411 [aux_sym_ppUsesBlock_token1]; ACTIONS 413 [sym_kAdd; sym_kSub];
   ACTIONS 415 [sym_kAt]; ACTIONS 417 [sym_kTrue; sym_kFalse]; ACTIONS 419 [sym_labelNumber];
   ACTIONS 3 [sym__space]; ACTIONS 5 [sym_ppDirective]; ACTIONS 3 [sym_comment];
   ACTIONS 417 [sym_ppFragmentExpr]; ACTIONS 397 [sym_ppFragmentStmt];
   ACTIONS 403 [sym__literalStringMultiline]; ACTIONS 421 [sym_identifier];
   ACTIONS 423 [sym_kSpecialize]; ACTIONS 427 [sym_kAsm]; ACTIONS 429 [sym_kBegin];
   ACTIONS 431 [sym_kCase]; ACTIONS 433 [sym_kConst]; ACTIONS 3665 [sym_kEnd];
   ACTIONS 437 [sym_kFor]; ACTIONS 439 [sym_kFunction]; ACTIONS 441 [sym_kGoto];
   ACTIONS 443 [sym_kIf]; ACTIONS 445 [sym_kInherited]; ACTIONS 417 [sym_kNil];
   ACTIONS 415 [sym_kNot]; ACTIONS 439 [sym_kProcedure]; ACTIONS 447 [sym_kRaise];
   ACTIONS 449 [sym_kRepeat]; ACTIONS 451 [sym_kString]; ACTIONS 453 [sym_kTry];
   ACTIONS 455 [sym_kVar]; ACTIONS 457 [sym_kWhile]; ACTIONS 459 [sym_kWith]].

(** State 648. *)
Definition ts_parse_table_648 : parse_row :=
  [STATE 6213 [sym_if]; STATE 6327 [sym_ifElse; sym_while; sym_repeat; sym_for; sym_foreach;
   sym_try; sym_case; sym_block; sym_asm; sym_with; sym_raise; sym_statement; sym_goto;
   sym__statement]; STATE 15461 [sym_ifTr; sym_ifElseTr; sym_whileTr; sym_repeatTr; sym_forTr;
   sym_foreachTr; sym_tryTr; sym_caseTr]; STATE 14251 [sym_blockTr]; STATE 15461 [sym_asmTr;
   sym_withTr; sym_raiseTr; sym_statementTr; sym_gotoTr; sym__statementTr];
   STATE 13915 [sym_assignment]; STATE 11785 [sym_varAssignDef]; STATE 13915 [sym_varDef;
   sym_constDef]; STATE 6166 [sym_label]; STATE 15461 [sym__statementsTr]; STATE 8019 [sym__expr;
   sym_exprConditional]; STATE 7478 [sym__ref; sym_lambda; sym_inherited; sym_exprDot;
   sym_exprDeref; sym_exprAs; sym_exprTpl; sym_exprSubscript; sym_exprCall];
   STATE 8019 [sym_exprBinary; sym_exprUnary]; STATE 7478 [sym_exprParens; sym_exprBrackets;
   sym__literal; sym_literalString]; STATE 6664 [sym__literalString; sym_literalChar];
   STATE 7478 [sym_literalNumber]; STATE 7742 [sym__literalInt; sym__literalFloat];
   STATE 1380 [sym__ppIf]; STATE 6327 [sym__ppStatementBlock];
   STATE 11840 [aux_sym_labeledStatement_repeat1]; STATE 863 [aux_sym__statementsTr_repeat1];
   STATE 6664 [aux_sym_literalString_repeat1]; ACTIONS 397 [anon_sym_SEMI];
   ACTIONS 399 [anon_sym_LBRACK]; ACTIONS 401 [anon_sym_LPAREN];
   ACTIONS 403 [aux_sym__literalString_token1]; ACTIONS 405 [anon_sym_POUND];
   ACTIONS 407 [aux_sym__literalInt_token1]; ACTIONS 409 [aux_sym__literalInt_token2;
   aux_sym__literalInt_token3]; ACTIONS 407 [aux_sym__literalFloat_token1];
   ACTIONS 411 [aux_sym_ppUsesBlock_token1]; ACTIONS 413 [sym_kAdd; sym_kSub];
   ACTIONS 415 [sym_kAt]; ACTIONS 417 [sym_kTrue; sym_kFalse]; ACTIONS 419 [sym_labelNumber];
   ACTIONS 3 [sym__space]; ACTIONS 5 [sym_ppDirective]; ACTIONS 3 [sym_comment];
   ACTIONS 417 [sym_ppFragmentExpr]; ACTIONS 397 [sym_ppFragmentStmt];
   ACTIONS 403 [sym__literalStringMultiline]; ACTIONS 421 [sym_identifier];
   ACTIONS 423 [sym_kSpecialize]; ACTIONS 427 [sym_kAsm]; ACTIONS 429 [sym_kBegin];
   ACTIONS 431 [sym_kCase]; ACTIONS 433 [sym_kConst]; ACTIONS 1332 [sym_kEnd];
   ACTIONS 437 [sym_kFor]; ACTIONS 439 [sym_kFunction]; ACTIONS 441 [sym_kGoto];
   ACTIONS 443 [sym_kIf]; ACTIONS 445 [sym_kInherited]; ACTIONS 417 [sym_kNil];
   ACTIONS 415 [sym_kNot]; ACTIONS 439 [sym_kProcedure]; ACTIONS 447 [sym_kRaise];
   ACTIONS 449 [sym_kRepeat]; ACTIONS 451 [sym_kString]; ACTIONS 453 [sym_kTry];
   ACTIONS 455 [sym_kVar]; ACTIONS 457 [sym_kWhile]; ACTIONS 459 [sym_kWith]].

(** State 649. *)
Definition ts_parse_table_649 : parse_row :=
  [STATE 6213 [sym_if]; STATE 6327 [sym_ifElse; sym_while; sym_repeat; sym_for; sym_foreach;
   sym_try; sym_case; sym_block; sym_asm; sym_with; sym_raise; sym_statement; sym_goto;
   sym__statement]; STATE 15466 [sym_ifTr; sym_ifElseTr; sym_whileTr; sym_repeatTr; sym_forTr;
   sym_foreachTr; sym_tryTr; sym_caseTr]; STATE 14251 [sym_blockTr]; STATE 15466 [sym_asmTr;
   sym_withTr; sym_raiseTr; sym_statementTr; sym_gotoTr; sym__statementTr];
   STATE 13915 [sym_assignment]; STATE 11785 [sym_varAssignDef]; STATE 13915 [sym_varDef;
   sym_constDef]; STATE 6166 [sym_label]; STATE 15466 [sym__statementsTr]; STATE 8019 [sym__expr;
   sym_exprConditional]; STATE 7478 [sym__ref; sym_lambda; sym_inherited; sym_exprDot;
   sym_exprDeref; sym_exprAs; sym_exprTpl; sym_exprSubscript; sym_exprCall];
   STATE 8019 [sym_exprBinary; sym_exprUnary]; STATE 7478 [sym_exprParens; sym_exprBrackets;
   sym__literal; sym_literalString]; STATE 6664 [sym__literalString; sym_literalChar];
   STATE 7478 [sym_literalNumber]; STATE 7742 [sym__literalInt; sym__literalFloat];
   STATE 1380 [sym__ppIf]; STATE 6327 [sym__ppStatementBlock];
   STATE 11840 [aux_sym_labeledStatement_repeat1]; STATE 863 [aux_sym__statementsTr_repeat1];
   STATE 6664 [aux_sym_literalString_repeat1]; ACTIONS 397 [anon_sym_SEMI];
   ACTIONS 399 [anon_sym_LBRACK]; ACTIONS 401 [anon_sym_LPAREN];
   ACTIONS 403 [aux_sym__literalString_token1]; ACTIONS 405 [anon_sym_POUND];
   ACTIONS 407 [aux_sym__literalInt_token1]; ACTIONS 409 [aux_sym__literalInt_token2;
   aux_sym__literalInt_token3]; ACTIONS 407 [aux_sym__literalFloat_token1];
   ACTIONS 411 [aux_sym_ppUsesBlock_token1]; ACTIONS 413 [sym_kAdd; sym_kSub];
   ACTIONS 415 [sym_kAt]; ACTIONS 417 [sym_kTrue; sym_kFalse]; ACTIONS 419 [sym_labelNumber];
   ACTIONS 3 [sym__space]; ACTIONS 5 [sym_ppDirective]; ACTIONS 3 [sym_comment];
   ACTIONS 417 [sym_ppFragmentExpr]; ACTIONS 397 [sym_ppFragmentStmt];
   ACTIONS 403 [sym__literalStringMultiline]; ACTIONS 421 [sym_identifier];
   ACTIONS 423 [sym_kSpecialize]; ACTIONS 427 [sym_kAsm]; ACTIONS 429 [sym_kBegin];
   ACTIONS 431 [sym_kCase]; ACTIONS 433 [sym_kConst]; ACTIONS 3667 [sym_kEnd];
   ACTIONS 437 [sym_kFor]; ACTIONS 439 [sym_kFunction]; ACTIONS 441 [sym_kGoto];
   ACTIONS 443 [sym_kIf]; ACTIONS 445 [sym_kInherited]; ACTIONS 417 [sym_kNil];
   ACTIONS 415 [sym_kNot]; ACTIONS 439 [sym_kProcedure]; ACTIONS 447 [sym_kRaise];
   ACTIONS 449 [sym_kRepeat]; ACTIONS 451 [sym_kString]; ACTIONS 453 [sym_kTry];
   ACTIONS 455 [sym_kVar]; ACTIONS 457 [sym_kWhile]; ACTIONS 459 [sym_kWith]].

(** State 650. *)
Definition ts_parse_table_650 : parse_row :=
  [STATE 6213 [sym_if]; STATE 6327 [sym_ifElse; sym_while; sym_repeat; sym_for; sym_foreach;
   sym_try; sym_case; sym_block; sym_asm; sym_with; sym_raise; sym_statement; sym_goto;
   sym__statement]; STATE 14605 [sym_ifTr; sym_ifElseTr; sym_whileTr; sym_repeatTr; sym_forTr;
   sym_foreachTr; sym_tryTr; sym_caseTr]; STATE 14251 [sym_blockTr]; STATE 14605 [sym_asmTr;
   sym_withTr; sym_raiseTr; sym_statementTr; sym_gotoTr; sym__statementTr];
   STATE 13915 [sym_assignment]; STATE 11785 [sym_varAssignDef]; STATE 13915 [sym_varDef;
   sym_constDef]; STATE 6166 [sym_label]; STATE 14605 [sym__statementsTr]; STATE 8019 [sym__expr;
   sym_exprConditional]; STATE 7478 [sym__ref; sym_lambda; sym_inherited; sym_exprDot;
   sym_exprDeref; sym_exprAs; sym_exprTpl; sym_exprSubscript; sym_exprCall];
   STATE 8019 [sym_exprBinary; sym_exprUnary]; STATE 7478 [sym_exprParens; sym_exprBrackets;
   sym__literal; sym_literalString]; STATE 6664 [sym__literalString; sym_literalChar];
   STATE 7478 [sym_literalNumber]; STATE 7742 [sym__literalInt; sym__literalFloat];
   STATE 1380 [sym__ppIf]; STATE 6327 [sym__ppStatementBlock];
   STATE 11840 [aux_sym_labeledStatement_repeat1]; STATE 863 [aux_sym__statementsTr_repeat1];
   STATE 6664 [aux_sym_literalString_repeat1]; ACTIONS 397 [anon_sym_SEMI];
   ACTIONS 399 [anon_sym_LBRACK]; ACTIONS 401 [anon_sym_LPAREN];
   ACTIONS 403 [aux_sym__literalString_token1]; ACTIONS 405 [anon_sym_POUND];
   ACTIONS 407 [aux_sym__literalInt_token1]; ACTIONS 409 [aux_sym__literalInt_token2;
   aux_sym__literalInt_token3]; ACTIONS 407 [aux_sym__literalFloat_token1];
   ACTIONS 411 [aux_sym_ppUsesBlock_token1]; ACTIONS 413 [sym_kAdd; sym_kSub];
   ACTIONS 415 [sym_kAt]; ACTIONS 417 [sym_kTrue; sym_kFalse]; ACTIONS 419 [sym_labelNumber];
   ACTIONS 3 [sym__space]; ACTIONS 5 [sym_ppDirective]; ACTIONS 3 [sym_comment];
   ACTIONS 417 [sym_ppFragmentExpr]; ACTIONS 397 [sym_ppFragmentStmt];
   ACTIONS 403 [sym__literalStringMultiline]; ACTIONS 421 [sym_identifier];
   ACTIONS 423 [sym_kSpecialize]; ACTIONS 427 [sym_kAsm]; ACTIONS 429 [sym_kBegin];
   ACTIONS 431 [sym_kCase]; ACTIONS 433 [sym_kConst]; ACTIONS 2809 [sym_kEnd];
   ACTIONS 437 [sym_kFor]; ACTIONS 439 [sym_kFunction]; ACTIONS 441 [sym_kGoto];
   ACTIONS 443 [sym_kIf]; ACTIONS 445 [sym_kInherited]; ACTIONS 417 [sym_kNil];
   ACTIONS 415 [sym_kNot]; ACTIONS 439 [sym_kProcedure]; ACTIONS 447 [sym_kRaise];
   ACTIONS 449 [sym_kRepeat]; ACTIONS 451 [sym_kString]; ACTIONS 453 [sym_kTry];
   ACTIONS 455 [sym_kVar]; ACTIONS 457 [sym_kWhile]; ACTIONS 459 [sym_kWith]].

(** State 651. *)
Definition ts_parse_table_651 : parse_row :=
  [STATE 17 [sym__ppIf]; STATE 658 [sym_ppBlock; sym_declVar]; STATE 5427 [sym_rttiAttributes];
   STATE 658 [aux_sym_declVars_repeat1]; STATE 5428 [aux_sym_declVar_repeat1];
   STATE 4094 [aux_sym_rttiAttributes_repeat2]; ACTIONS 3669 [anon_sym_SEMI; anon_sym_COMMA];
   ACTIONS 3671 [anon_sym_LBRACK]; ACTIONS 3674 [anon_sym_LPAREN];
   ACTIONS 3669 [aux_sym__literalString_token1; anon_sym_POUND];
   ACTIONS 3674 [aux_sym__literalInt_token1]; ACTIONS 3669 [aux_sym__literalInt_token2;
   aux_sym__literalInt_token3]; ACTIONS 3674 [aux_sym__literalFloat_token1];
   ACTIONS 3676 [aux_sym_ppUsesBlock_token1]; ACTIONS 3669 [aux_sym_ppUsesBlock_token2;
   aux_sym_ppUsesBlock_token3]; ACTIONS 3674 [sym_kAdd; sym_kSub]; ACTIONS 3669 [sym_kAt;
   sym_kTrue; sym_kFalse]; ACTIONS 3 [sym__space]; ACTIONS 5 [sym_ppDirective];
   ACTIONS 3 [sym_comment]; ACTIONS 3669 [sym_ppFragmentExpr; sym__literalStringMultiline];
   ACTIONS 3679 [sym_identifier]; ACTIONS 3682 [sym_kDefault; sym_kNodefault; sym_kDispId];
   ACTIONS 3669 [sym_kGeneric; sym_kSpecialize]; ACTIONS 3682 [sym_kOperator; sym_kPublic;
   sym_kStatic; sym_kVirtual; sym_kAbstract; sym_kDynamic; sym_kOverride; sym_kOverload;
   sym_kReintroduce; sym_kStdcall; sym_kCdecl; sym_kCppdecl; sym_kPascal; sym_kRegister;
   sym_kMwpascal; sym_kMessage; sym_kDeprecated; sym_kExperimental; sym_kPlatform;
   sym_kUnimplemented; sym_kCvar; sym_kExport; sym_kFar; sym_kNear; sym_kSafecall;
   sym_kAssembler; sym_kNostackframe; sym_kInterrupt; sym_kNoreturn; sym_kIocheck; sym_kLocal;
   sym_kHardfloat; sym_kSoftfloat; sym_kMs_abi_default; sym_kMs_abi_cdecl; sym_kSaveregisters;
   sym_kSysv_abi_default; sym_kSysv_abi_cdecl; sym_kVectorcall; sym_kVarargs; sym_kWinapi;
   sym_kAlias]; ACTIONS 3669 [sym_kAsm; sym_kBegin; sym_kCase; sym_kClass; sym_kConst;
   sym_kConstructor; sym_kDestructor; sym_kExports; sym_kFor; sym_kFunction; sym_kGoto; sym_kIf;
   sym_kInherited; sym_kLabel; sym_kNil; sym_kNot; sym_kProcedure; sym_kProperty; sym_kRaise;
   sym_kRepeat; sym_kResourcestring; sym_kString; sym_kThreadvar; sym_kTry; sym_kType; sym_kUses;
   sym_kVar; sym_kWhile; sym_kWith]].

(** State 652. *)
Definition ts_parse_table_652 : parse_row :=
  [STATE 6213 [sym_if]; STATE 6327 [sym_ifElse; sym_while; sym_repeat; sym_for; sym_foreach;
   sym_try; sym_case; sym_block; sym_asm; sym_with; sym_raise; sym_statement; sym_goto;
   sym__statement]; STATE 14608 [sym_ifTr; sym_ifElseTr; sym_whileTr; sym_repeatTr; sym_forTr;
   sym_foreachTr; sym_tryTr; sym_caseTr]; STATE 14251 [sym_blockTr]; STATE 14608 [sym_asmTr;
   sym_withTr; sym_raiseTr; sym_statementTr; sym_gotoTr; sym__statementTr];
   STATE 13915 [sym_assignment]; STATE 11785 [sym_varAssignDef]; STATE 13915 [sym_varDef;
   sym_constDef]; STATE 6166 [sym_label]; STATE 14608 [sym__statementsTr]; STATE 8019 [sym__expr;
   sym_exprConditional]; STATE 7478 [sym__ref; sym_lambda; sym_inherited; sym_exprDot;
   sym_exprDeref; sym_exprAs; sym_exprTpl; sym_exprSubscript; sym_exprCall];
   STATE 8019 [sym_exprBinary; sym_exprUnary]; STATE 7478 [sym_exprParens; sym_exprBrackets;
   sym__literal; sym_literalString]; STATE 6664 [sym__literalString; sym_literalChar];
   STATE 7478 [sym_literalNumber]; STATE 7742 [sym__literalInt; sym__literalFloat];
   STATE 1380 [sym__ppIf]; STATE 6327 [sym__ppStatementBlock];
   STATE 11840 [aux_sym_labeledStatement_repeat1]; STATE 863 [aux_sym__statementsTr_repeat1];
   STATE 6664 [aux_sym_literalString_repeat1]; ACTIONS 397 [anon_sym_SEMI];
   ACTIONS 399 [anon_sym_LBRACK]; ACTIONS 401 [anon_sym_LPAREN];
   ACTIONS 403 [aux_sym__literalString_token1]; ACTIONS 405 [anon_sym_POUND];
   ACTIONS 407 [aux_sym__literalInt_token1]; ACTIONS 409 [aux_sym__literalInt_token2;
   aux_sym__literalInt_token3]; ACTIONS 407 [aux_sym__literalFloat_token1];
   ACTIONS 411 [aux_sym_ppUsesBlock_token1]; ACTIONS 413 [sym_kAdd; sym_kSub];
   ACTIONS 415 [sym_kAt]; ACTIONS 417 [sym_kTrue; sym_kFalse]; ACTIONS 419 [sym_labelNumber];
   ACTIONS 3 [sym__space]; ACTIONS 5 [sym_ppDirective]; ACTIONS 3 [sym_comment];
   ACTIONS 417 [sym_ppFragmentExpr]; ACTIONS 397 [sym_ppFragmentStmt];
   ACTIONS 403 [sym__literalStringMultiline]; ACTIONS 421 [sym_identifier];
   ACTIONS 423 [sym_kSpecialize]; ACTIONS 427 [sym_kAsm]; ACTIONS 429 [sym_kBegin];
   ACTIONS 431 [sym_kCase]; ACTIONS 433 [sym_kConst]; ACTIONS 2813 [sym_kEnd];
   ACTIONS 437 [sym_kFor]; ACTIONS 439 [sym_kFunction]; ACTIONS 441 [sym_kGoto];
   ACTIONS 443 [sym_kIf]; ACTIONS 445 [sym_kInherited]; ACTIONS 417 [sym_kNil];
   ACTIONS 415 [sym_kNot]; ACTIONS 439 [sym_kProcedure]; ACTIONS 447 [sym_kRaise];
   ACTIONS 449 [sym_kRepeat]; ACTIONS 451 [sym_kString]; ACTIONS 453 [sym_kTry];
   ACTIONS 455 [sym_kVar]; ACTIONS 457 [sym_kWhile]; ACTIONS 459 [sym_kWith]].

(** State 653. *)
Definition ts_parse_table_653 : parse_row :=
  [STATE 6213 [sym_if]; STATE 6327 [sym_ifElse; sym_while; sym_repeat; sym_for; sym_foreach;
   sym_try; sym_case; sym_block; sym_asm; sym_with; sym_raise; sym_statement; sym_goto;
   sym__statement]; STATE 15497 [sym_ifTr; sym_ifElseTr; sym_whileTr; sym_repeatTr; sym_forTr;
   sym_foreachTr; sym_tryTr; sym_caseTr]; STATE 14251 [sym_blockTr]; STATE 15497 [sym_asmTr;
   sym_withTr; sym_raiseTr; sym_statementTr; sym_gotoTr; sym__statementTr];
   STATE 13915 [sym_assignment]; STATE 11785 [sym_varAssignDef]; STATE 13915 [sym_varDef;
   sym_constDef]; STATE 6166 [sym_label]; STATE 15497 [sym__statementsTr]; STATE 8019 [sym__expr;
   sym_exprConditional]; STATE 7478 [sym__ref; sym_lambda; sym_inherited; sym_exprDot;
   sym_exprDeref; sym_exprAs; sym_exprTpl; sym_exprSubscript; sym_exprCall];
   STATE 8019 [sym_exprBinary; sym_exprUnary]; STATE 7478 [sym_exprParens; sym_exprBrackets;
   sym__literal; sym_literalString]; STATE 6664 [sym__literalString; sym_literalChar];
   STATE 7478 [sym_literalNumber]; STATE 7742 [sym__literalInt; sym__literalFloat];
   STATE 1380 [sym__ppIf]; STATE 6327 [sym__ppStatementBlock];
   STATE 11840 [aux_sym_labeledStatement_repeat1]; STATE 863 [aux_sym__statementsTr_repeat1];
   STATE 6664 [aux_sym_literalString_repeat1]; ACTIONS 397 [anon_sym_SEMI];
   ACTIONS 399 [anon_sym_LBRACK]; ACTIONS 401 [anon_sym_LPAREN];
   ACTIONS 403 [aux_sym__literalString_token1]; ACTIONS 405 [anon_sym_POUND];
   ACTIONS 407 [aux_sym__literalInt_token1]; ACTIONS 409 [aux_sym__literalInt_token2;
   aux_sym__literalInt_token3]; ACTIONS 407 [aux_sym__literalFloat_token1];
   ACTIONS 411 [aux_sym_ppUsesBlock_token1]; ACTIONS 413 [sym_kAdd; sym_kSub];
   ACTIONS 415 [sym_kAt]; ACTIONS 417 [sym_kTrue; sym_kFalse]; ACTIONS 419 [sym_labelNumber];
   ACTIONS 3 [sym__space]; ACTIONS 5 [sym_ppDirective]; ACTIONS 3 [sym_comment];
   ACTIONS 417 [sym_ppFragmentExpr]; ACTIONS 397 [sym_ppFragmentStmt];
   ACTIONS 403 [sym__literalStringMultiline]; ACTIONS 421 [sym_identifier];
   ACTIONS 423 [sym_kSpecialize]; ACTIONS 427 [sym_kAsm]; ACTIONS 429 [sym_kBegin];
   ACTIONS 431 [sym_kCase]; ACTIONS 433 [sym_kConst]; ACTIONS 3685 [sym_kEnd];
   ACTIONS 437 [sym_kFor]; ACTIONS 439 [sym_kFunction]; ACTIONS 441 [sym_kGoto];
   ACTIONS 443 [sym_kIf]; ACTIONS 445 [sym_kInherited]; ACTIONS 417 [sym_kNil];
   ACTIONS 415 [sym_kNot]; ACTIONS 439 [sym_kProcedure]; ACTIONS 447 [sym_kRaise];
   ACTIONS 449 [sym_kRepeat]; ACTIONS 451 [sym_kString]; ACTIONS 453 [sym_kTry];
   ACTIONS 455 [sym_kVar]; ACTIONS 457 [sym_kWhile]; ACTIONS 459 [sym_kWith]].

(** State 654. *)
Definition ts_parse_table_654 : parse_row :=
  [STATE 6213 [sym_if]; STATE 6327 [sym_ifElse; sym_while; sym_repeat; sym_for; sym_foreach;
   sym_try; sym_case; sym_block; sym_asm; sym_with; sym_raise; sym_statement; sym_goto;
   sym__statement]; STATE 14610 [sym_ifTr; sym_ifElseTr; sym_whileTr; sym_repeatTr; sym_forTr;
   sym_foreachTr; sym_tryTr; sym_caseTr]; STATE 14251 [sym_blockTr]; STATE 14610 [sym_asmTr;
   sym_withTr; sym_raiseTr; sym_statementTr; sym_gotoTr; sym__statementTr];
   STATE 13915 [sym_assignment]; STATE 11785 [sym_varAssignDef]; STATE 13915 [sym_varDef;
   sym_constDef]; STATE 6166 [sym_label]; STATE 14610 [sym__statementsTr]; STATE 8019 [sym__expr;
   sym_exprConditional]; STATE 7478 [sym__ref; sym_lambda; sym_inherited; sym_exprDot;
   sym_exprDeref; sym_exprAs; sym_exprTpl; sym_exprSubscript; sym_exprCall];
   STATE 8019 [sym_exprBinary; sym_exprUnary]; STATE 7478 [sym_exprParens; sym_exprBrackets;
   sym__literal; sym_literalString]; STATE 6664 [sym__literalString; sym_literalChar];
   STATE 7478 [sym_literalNumber]; STATE 7742 [sym__literalInt; sym__literalFloat];
   STATE 1380 [sym__ppIf]; STATE 6327 [sym__ppStatementBlock];
   STATE 11840 [aux_sym_labeledStatement_repeat1]; STATE 863 [aux_sym__statementsTr_repeat1];
   STATE 6664 [aux_sym_literalString_repeat1]; ACTIONS 397 [anon_sym_SEMI];
   ACTIONS 399 [anon_sym_LBRACK]; ACTIONS 401 [anon_sym_LPAREN];
   ACTIONS 403 [aux_sym__literalString_token1]; ACTIONS 405 [anon_sym_POUND];
   ACTIONS 407 [aux_sym__literalInt_token1]; ACTIONS 409 [aux_sym__literalInt_token2;
   aux_sym__literalInt_token3]; ACTIONS 407 [aux_sym__literalFloat_token1];
   ACTIONS 411 [aux_sym_ppUsesBlock_token1]; ACTIONS 413 [sym_kAdd; sym_kSub];
   ACTIONS 415 [sym_kAt]; ACTIONS 417 [sym_kTrue; sym_kFalse]; ACTIONS 419 [sym_labelNumber];
   ACTIONS 3 [sym__space]; ACTIONS 5 [sym_ppDirective]; ACTIONS 3 [sym_comment];
   ACTIONS 417 [sym_ppFragmentExpr]; ACTIONS 397 [sym_ppFragmentStmt];
   ACTIONS 403 [sym__literalStringMultiline]; ACTIONS 421 [sym_identifier];
   ACTIONS 423 [sym_kSpecialize]; ACTIONS 427 [sym_kAsm]; ACTIONS 429 [sym_kBegin];
   ACTIONS 431 [sym_kCase]; ACTIONS 433 [sym_kConst]; ACTIONS 3687 [sym_kEnd];
   ACTIONS 437 [sym_kFor]; ACTIONS 439 [sym_kFunction]; ACTIONS 441 [sym_kGoto];
   ACTIONS 443 [sym_kIf]; ACTIONS 445 [sym_kInherited]; ACTIONS 417 [sym_kNil];
   ACTIONS 415 [sym_kNot]; ACTIONS 439 [sym_kProcedure]; ACTIONS 447 [sym_kRaise];
   ACTIONS 449 [sym_kRepeat]; ACTIONS 451 [sym_kString]; ACTIONS 453 [sym_kTry];
   ACTIONS 455 [sym_kVar]; ACTIONS 457 [sym_kWhile]; ACTIONS 459 [sym_kWith]].

(** State 655. *)
Definition ts_parse_table_655 : parse_row :=
  [STATE 6213 [sym_if]; STATE 6327 [sym_ifElse; sym_while; sym_repeat; sym_for; sym_foreach;
   sym_try; sym_case; sym_block; sym_asm; sym_with; sym_raise; sym_statement; sym_goto;
   sym__statement]; STATE 15526 [sym_ifTr; sym_ifElseTr; sym_whileTr; sym_repeatTr; sym_forTr;
   sym_foreachTr; sym_tryTr; sym_caseTr]; STATE 14251 [sym_blockTr]; STATE 15526 [sym_asmTr;
   sym_withTr; sym_raiseTr; sym_statementTr; sym_gotoTr; sym__statementTr];
   STATE 13915 [sym_assignment]; STATE 11785 [sym_varAssignDef]; STATE 13915 [sym_varDef;
   sym_constDef]; STATE 6166 [sym_label]; STATE 15526 [sym__statementsTr]; STATE 8019 [sym__expr;
   sym_exprConditional]; STATE 7478 [sym__ref; sym_lambda; sym_inherited; sym_exprDot;
   sym_exprDeref; sym_exprAs; sym_exprTpl; sym_exprSubscript; sym_exprCall];
   STATE 8019 [sym_exprBinary; sym_exprUnary]; STATE 7478 [sym_exprParens; sym_exprBrackets;
   sym__literal; sym_literalString]; STATE 6664 [sym__literalString; sym_literalChar];
   STATE 7478 [sym_literalNumber]; STATE 7742 [sym__literalInt; sym__literalFloat];
   STATE 1380 [sym__ppIf]; STATE 6327 [sym__ppStatementBlock];
   STATE 11840 [aux_sym_labeledStatement_repeat1]; STATE 863 [aux_sym__statementsTr_repeat1];
   STATE 6664 [aux_sym_literalString_repeat1]; ACTIONS 397 [anon_sym_SEMI];
   ACTIONS 399 [anon_sym_LBRACK]; ACTIONS 401 [anon_sym_LPAREN];
   ACTIONS 403 [aux_sym__literalString_token1]; ACTIONS 405 [anon_sym_POUND];
   ACTIONS 407 [aux_sym__literalInt_token1]; ACTIONS 409 [aux_sym__literalInt_token2;
   aux_sym__literalInt_token3]; ACTIONS 407 [aux_sym__literalFloat_token1];
   ACTIONS 411 [aux_sym_ppUsesBlock_token1]; ACTIONS 413 [sym_kAdd; sym_kSub];
   ACTIONS 415 [sym_kAt]; ACTIONS 417 [sym_kTrue; sym_kFalse]; ACTIONS 419 [sym_labelNumber];
   ACTIONS 3 [sym__space]; ACTIONS 5 [sym_ppDirective]; ACTIONS 3 [sym_comment];
   ACTIONS 417 [sym_ppFragmentExpr]; ACTIONS 397 [sym_ppFragmentStmt];
   ACTIONS 403 [sym__literalStringMultiline]; ACTIONS 421 [sym_identifier];
   ACTIONS 423 [sym_kSpecialize]; ACTIONS 427 [sym_kAsm]; ACTIONS 429 [sym_kBegin];
   ACTIONS 431 [sym_kCase]; ACTIONS 433 [sym_kConst]; ACTIONS 3689 [sym_kEnd];
   ACTIONS 437 [sym_kFor]; ACTIONS 439 [sym_kFunction]; ACTIONS 441 [sym_kGoto];
   ACTIONS 443 [sym_kIf]; ACTIONS 445 [sym_kInherited]; ACTIONS 417 [sym_kNil];
   ACTIONS 415 [sym_kNot]; ACTIONS 439 [sym_kProcedure]; ACTIONS 447 [sym_kRaise];
   ACTIONS 449 [sym_kRepeat]; ACTIONS 451 [sym_kString]; ACTIONS 453 [sym_kTry];
   ACTIONS 455 [sym_kVar]; ACTIONS 457 [sym_kWhile]; ACTIONS 459 [sym_kWith]].

(** State 656. *)
Definition ts_parse_table_656 : parse_row :=
  [STATE 6213 [sym_if]; STATE 6327 [sym_ifElse; sym_while; sym_repeat; sym_for; sym_foreach;
   sym_try; sym_case; sym_block; sym_asm; sym_with; sym_raise; sym_statement; sym_goto;
   sym__statement]; STATE 14636 [sym_ifTr; sym_ifElseTr; sym_whileTr; sym_repeatTr; sym_forTr;
   sym_foreachTr; sym_tryTr; sym_caseTr]; STATE 14251 [sym_blockTr]; STATE 14636 [sym_asmTr;
   sym_withTr; sym_raiseTr; sym_statementTr; sym_gotoTr; sym__statementTr];
   STATE 13915 [sym_assignment]; STATE 11785 [sym_varAssignDef]; STATE 13915 [sym_varDef;
   sym_constDef]; STATE 6166 [sym_label]; STATE 14636 [sym__statementsTr]; STATE 8019 [sym__expr;
   sym_exprConditional]; STATE 7478 [sym__ref; sym_lambda; sym_inherited; sym_exprDot;
   sym_exprDeref; sym_exprAs; sym_exprTpl; sym_exprSubscript; sym_exprCall];
   STATE 8019 [sym_exprBinary; sym_exprUnary]; STATE 7478 [sym_exprParens; sym_exprBrackets;
   sym__literal; sym_literalString]; STATE 6664 [sym__literalString; sym_literalChar];
   STATE 7478 [sym_literalNumber]; STATE 7742 [sym__literalInt; sym__literalFloat];
   STATE 1380 [sym__ppIf]; STATE 6327 [sym__ppStatementBlock];
   STATE 11840 [aux_sym_labeledStatement_repeat1]; STATE 863 [aux_sym__statementsTr_repeat1];
   STATE 6664 [aux_sym_literalString_repeat1]; ACTIONS 397 [anon_sym_SEMI];
   ACTIONS 399 [anon_sym_LBRACK]; ACTIONS 401 [anon_sym_LPAREN];
   ACTIONS 403 [aux_sym__literalString_token1]; ACTIONS 405 [anon_sym_POUND];
   ACTIONS 407 [aux_sym__literalInt_token1]; ACTIONS 409 [aux_sym__literalInt_token2;
   aux_sym__literalInt_token3]; ACTIONS 407 [aux_sym__literalFloat_token1];
   ACTIONS 411 [aux_sym_ppUsesBlock_token1]; ACTIONS 413 [sym_kAdd; sym_kSub];
   ACTIONS 415 [sym_kAt]; ACTIONS 417 [sym_kTrue; sym_kFalse]; ACTIONS 419 [sym_labelNumber];
   ACTIONS 3 [sym__space]; ACTIONS 5 [sym_ppDirective]; ACTIONS 3 [sym_comment];
   ACTIONS 417 [sym_ppFragmentExpr]; ACTIONS 397 [sym_ppFragmentStmt];
   ACTIONS 403 [sym__literalStringMultiline]; ACTIONS 421 [sym_identifier];
   ACTIONS 423 [sym_kSpecialize]; ACTIONS 427 [sym_kAsm]; ACTIONS 429 [sym_kBegin];
   ACTIONS 431 [sym_kCase]; ACTIONS 433 [sym_kConst]; ACTIONS 3691 [sym_kEnd];
   ACTIONS 437 [sym_kFor]; ACTIONS 439 [sym_kFunction]; ACTIONS 441 [sym_kGoto];
   ACTIONS 443 [sym_kIf]; ACTIONS 445 [sym_kInherited]; ACTIONS 417 [sym_kNil];
   ACTIONS 415 [sym_kNot]; ACTIONS 439 [sym_kProcedure]; ACTIONS 447 [sym_kRaise];
   ACTIONS 449 [sym_kRepeat]; ACTIONS 451 [sym_kString]; ACTIONS 453 [sym_kTry];
   ACTIONS 455 [sym_kVar]; ACTIONS 457 [sym_kWhile]; ACTIONS 459 [sym_kWith]].

(** State 657. *)
Definition ts_parse_table_657 : parse_row :=
  [STATE 6213 [sym_if]; STATE 6327 [sym_ifElse; sym_while; sym_repeat; sym_for; sym_foreach;
   sym_try; sym_case; sym_block; sym_asm; sym_with; sym_raise; sym_statement; sym_goto;
   sym__statement]; STATE 14691 [sym_ifTr; sym_ifElseTr; sym_whileTr; sym_repeatTr; sym_forTr;
   sym_foreachTr; sym_tryTr; sym_caseTr]; STATE 14251 [sym_blockTr]; STATE 14691 [sym_asmTr;
   sym_withTr; sym_raiseTr; sym_statementTr; sym_gotoTr; sym__statementTr];
   STATE 13915 [sym_assignment]; STATE 11785 [sym_varAssignDef]; STATE 13915 [sym_varDef;
   sym_constDef]; STATE 6166 [sym_label]; STATE 14691 [sym__statementsTr]; STATE 8019 [sym__expr;
   sym_exprConditional]; STATE 7478 [sym__ref; sym_lambda; sym_inherited; sym_exprDot;
   sym_exprDeref; sym_exprAs; sym_exprTpl; sym_exprSubscript; sym_exprCall];
   STATE 8019 [sym_exprBinary; sym_exprUnary]; STATE 7478 [sym_exprParens; sym_exprBrackets;
   sym__literal; sym_literalString]; STATE 6664 [sym__literalString; sym_literalChar];
   STATE 7478 [sym_literalNumber]; STATE 7742 [sym__literalInt; sym__literalFloat];
   STATE 1380 [sym__ppIf]; STATE 6327 [sym__ppStatementBlock];
   STATE 11840 [aux_sym_labeledStatement_repeat1]; STATE 863 [aux_sym__statementsTr_repeat1];
   STATE 6664 [aux_sym_literalString_repeat1]; ACTIONS 397 [anon_sym_SEMI];
   ACTIONS 399 [anon_sym_LBRACK]; ACTIONS 401 [anon_sym_LPAREN];
   ACTIONS 403 [aux_sym__literalString_token1]; ACTIONS 405 [anon_sym_POUND];
   ACTIONS 407 [aux_sym__literalInt_token1]; ACTIONS 409 [aux_sym__literalInt_token2;
   aux_sym__literalInt_token3]; ACTIONS 407 [aux_sym__literalFloat_token1];
   ACTIONS 411 [aux_sym_ppUsesBlock_token1]; ACTIONS 413 [sym_kAdd; sym_kSub];
   ACTIONS 415 [sym_kAt]; ACTIONS 417 [sym_kTrue; sym_kFalse]; ACTIONS 419 [sym_labelNumber];
   ACTIONS 3 [sym__space]; ACTIONS 5 [sym_ppDirective]; ACTIONS 3 [sym_comment];
   ACTIONS 417 [sym_ppFragmentExpr]; ACTIONS 397 [sym_ppFragmentStmt];
   ACTIONS 403 [sym__literalStringMultiline]; ACTIONS 421 [sym_identifier];
   ACTIONS 423 [sym_kSpecialize]; ACTIONS 427 [sym_kAsm]; ACTIONS 429 [sym_kBegin];
   ACTIONS 431 [sym_kCase]; ACTIONS 433 [sym_kConst]; ACTIONS 2827 [sym_kEnd];
   ACTIONS 437 [sym_kFor]; ACTIONS 439 [sym_kFunction]; ACTIONS 441 [sym_kGoto];
   ACTIONS 443 [sym_kIf]; ACTIONS 445 [sym_kInherited]; ACTIONS 417 [sym_kNil];
   ACTIONS 415 [sym_kNot]; ACTIONS 439 [sym_kProcedure]; ACTIONS 447 [sym_kRaise];
   ACTIONS 449 [sym_kRepeat]; ACTIONS 451 [sym_kString]; ACTIONS 453 [sym_kTry];
   ACTIONS 455 [sym_kVar]; ACTIONS 457 [sym_kWhile]; ACTIONS 459 [sym_kWith]].

(** State 658. *)
Definition ts_parse_table_658 : parse_row :=
  [STATE 17 [sym__ppIf]; STATE 658 [sym_ppBlock; sym_declVar]; STATE 5427 [sym_rttiAttributes];
   STATE 658 [aux_sym_declVars_repeat1]; STATE 5428 [aux_sym_declVar_repeat1];
   STATE 4094 [aux_sym_rttiAttributes_repeat2]; ACTIONS 3693 [anon_sym_SEMI; anon_sym_COMMA];
   ACTIONS 3695 [anon_sym_LBRACK]; ACTIONS 3698 [anon_sym_LPAREN];
   ACTIONS 3693 [aux_sym__literalString_token1; anon_sym_POUND];
   ACTIONS 3698 [aux_sym__literalInt_token1]; ACTIONS 3693 [aux_sym__literalInt_token2;
   aux_sym__literalInt_token3]; ACTIONS 3698 [aux_sym__literalFloat_token1];
   ACTIONS 3700 [aux_sym_ppUsesBlock_token1]; ACTIONS 3693 [aux_sym_ppUsesBlock_token2;
   aux_sym_ppUsesBlock_token3]; ACTIONS 3698 [sym_kAdd; sym_kSub]; ACTIONS 3693 [sym_kAt;
   sym_kTrue; sym_kFalse]; ACTIONS 3 [sym__space]; ACTIONS 5 [sym_ppDirective];
   ACTIONS 3 [sym_comment]; ACTIONS 3693 [sym_ppFragmentExpr; sym__literalStringMultiline];
   ACTIONS 3703 [sym_identifier]; ACTIONS 3706 [sym_kDefault; sym_kNodefault; sym_kDispId];
   ACTIONS 3693 [sym_kGeneric; sym_kSpecialize]; ACTIONS 3706 [sym_kOperator; sym_kPublic;
   sym_kStatic; sym_kVirtual; sym_kAbstract; sym_kDynamic; sym_kOverride; sym_kOverload;
   sym_kReintroduce; sym_kStdcall; sym_kCdecl; sym_kCppdecl; sym_kPascal; sym_kRegister;
   sym_kMwpascal; sym_kMessage; sym_kDeprecated; sym_kExperimental; sym_kPlatform;
   sym_kUnimplemented; sym_kCvar; sym_kExport; sym_kFar; sym_kNear; sym_kSafecall;
   sym_kAssembler; sym_kNostackframe; sym_kInterrupt; sym_kNoreturn; sym_kIocheck; sym_kLocal;
   sym_kHardfloat; sym_kSoftfloat; sym_kMs_abi_default; sym_kMs_abi_cdecl; sym_kSaveregisters;
   sym_kSysv_abi_default; sym_kSysv_abi_cdecl; sym_kVectorcall; sym_kVarargs; sym_kWinapi;
   sym_kAlias]; ACTIONS 3693 [sym_kAsm; sym_kBegin; sym_kCase; sym_kClass; sym_kConst;
   sym_kConstructor; sym_kDestructor; sym_kExports; sym_kFor; sym_kFunction; sym_kGoto; sym_kIf;
   sym_kInherited; sym_kLabel; sym_kNil; sym_kNot; sym_kProcedure; sym_kProperty; sym_kRaise;
   sym_kRepeat; sym_kResourcestring; sym_kString; sym_kThreadvar; sym_kTry; sym_kType; sym_kUses;
   sym_kVar; sym_kWhile; sym_kWith]].

(** State 659. *)
Definition ts_parse_table_659 : parse_row :=
  [STATE 6213 [sym_if]; STATE 6327 [sym_ifElse; sym_while; sym_repeat; sym_for; sym_foreach;
   sym_try; sym_case; sym_block; sym_asm; sym_with; sym_raise; sym_statement; sym_goto;
   sym__statement]; STATE 14694 [sym_ifTr; sym_ifElseTr; sym_whileTr; sym_repeatTr; sym_forTr;
   sym_foreachTr; sym_tryTr; sym_caseTr]; STATE 14251 [sym_blockTr]; STATE 14694 [sym_asmTr;
   sym_withTr; sym_raiseTr; sym_statementTr; sym_gotoTr; sym__statementTr];
   STATE 13915 [sym_assignment]; STATE 11785 [sym_varAssignDef]; STATE 13915 [sym_varDef;
   sym_constDef]; STATE 6166 [sym_label]; STATE 14694 [sym__statementsTr]; STATE 8019 [sym__expr;
   sym_exprConditional]; STATE 7478 [sym__ref; sym_lambda; sym_inherited; sym_exprDot;
   sym_exprDeref; sym_exprAs; sym_exprTpl; sym_exprSubscript; sym_exprCall];
   STATE 8019 [sym_exprBinary; sym_exprUnary]; STATE 7478 [sym_exprParens; sym_exprBrackets;
   sym__literal; sym_literalString]; STATE 6664 [sym__literalString; sym_literalChar];
   STATE 7478 [sym_literalNumber]; STATE 7742 [sym__literalInt; sym__literalFloat];
   STATE 1380 [sym__ppIf]; STATE 6327 [sym__ppStatementBlock];
   STATE 11840 [aux_sym_labeledStatement_repeat1]; STATE 863 [aux_sym__statementsTr_repeat1];
   STATE 6664 [aux_sym_literalString_repeat1]; ACTIONS 397 [anon_sym_SEMI];
   ACTIONS 399 [anon_sym_LBRACK]; ACTIONS 401 [anon_sym_LPAREN];
   ACTIONS 403 [aux_sym__literalString_token1]; ACTIONS 405 [anon_sym_POUND];
   ACTIONS 407 [aux_sym__literalInt_token1]; ACTIONS 409 [aux_sym__literalInt_token2;
   aux_sym__literalInt_token3]; ACTIONS 407 [aux_sym__literalFloat_token1];
   ACTIONS 411 [aux_sym_ppUsesBlock_token1]; ACTIONS 413 [sym_kAdd; sym_kSub];
   ACTIONS 415 [sym_kAt]; ACTIONS 417 [sym_kTrue; sym_kFalse]; ACTIONS 419 [sym_labelNumber];
   ACTIONS 3 [sym__space]; ACTIONS 5 [sym_ppDirective]; ACTIONS 3 [sym_comment];
   ACTIONS 417 [sym_ppFragmentExpr]; ACTIONS 397 [sym_ppFragmentStmt];
   ACTIONS 403 [sym__literalStringMultiline]; ACTIONS 421 [sym_identifier];
   ACTIONS 423 [sym_kSpecialize]; ACTIONS 427 [sym_kAsm]; ACTIONS 429 [sym_kBegin];
   ACTIONS 431 [sym_kCase]; ACTIONS 433 [sym_kConst]; ACTIONS 2831 [sym_kEnd];
   ACTIONS 437 [sym_kFor]; ACTIONS 439 [sym_kFunction]; ACTIONS 441 [sym_kGoto];
   ACTIONS 443 [sym_kIf]; ACTIONS 445 [sym_kInherited]; ACTIONS 417 [sym_kNil];
   ACTIONS 415 [sym_kNot]; ACTIONS 439 [sym_kProcedure]; ACTIONS 447 [sym_kRaise];
   ACTIONS 449 [sym_kRepeat]; ACTIONS 451 [sym_kString]; ACTIONS 453 [sym_kTry];
   ACTIONS 455 [sym_kVar]; ACTIONS 457 [sym_kWhile]; ACTIONS 459 [sym_kWith]].

(** State 660. *)
Definition ts_parse_table_660 : parse_row :=
  [STATE 6213 [sym_if]; STATE 6327 [sym_ifElse; sym_while; sym_repeat; sym_for; sym_foreach;
   sym_try; sym_case; sym_block; sym_asm; sym_with; sym_raise; sym_statement; sym_goto;
   sym__statement]; STATE 14696 [sym_ifTr; sym_ifElseTr; sym_whileTr; sym_repeatTr; sym_forTr;
   sym_foreachTr; sym_tryTr; sym_caseTr]; STATE 14251 [sym_blockTr]; STATE 14696 [sym_asmTr;
   sym_withTr; sym_raiseTr; sym_statementTr; sym_gotoTr; sym__statementTr];
   STATE 13915 [sym_assignment]; STATE 11785 [sym_varAssignDef]; STATE 13915 [sym_varDef;
   sym_constDef]; STATE 6166 [sym_label]; STATE 14696 [sym__statementsTr]; STATE 8019 [sym__expr;
   sym_exprConditional]; STATE 7478 [sym__ref; sym_lambda; sym_inherited; sym_exprDot;
   sym_exprDeref; sym_exprAs; sym_exprTpl; sym_exprSubscript; sym_exprCall];
   STATE 8019 [sym_exprBinary; sym_exprUnary]; STATE 7478 [sym_exprParens; sym_exprBrackets;
   sym__literal; sym_literalString]; STATE 6664 [sym__literalString; sym_literalChar];
   STATE 7478 [sym_literalNumber]; STATE 7742 [sym__literalInt; sym__literalFloat];
   STATE 1380 [sym__ppIf]; STATE 6327 [sym__ppStatementBlock];
   STATE 11840 [aux_sym_labeledStatement_repeat1]; STATE 863 [aux_sym__statementsTr_repeat1];
   STATE 6664 [aux_sym_literalString_repeat1]; ACTIONS 397 [anon_sym_SEMI];
   ACTIONS 399 [anon_sym_LBRACK]; ACTIONS 401 [anon_sym_LPAREN];
   ACTIONS 403 [aux_sym__literalString_token1]; ACTIONS 405 [anon_sym_POUND];
   ACTIONS 407 [aux_sym__literalInt_token1]; ACTIONS 409 [aux_sym__literalInt_token2;
   aux_sym__literalInt_token3]; ACTIONS 407 [aux_sym__literalFloat_token1];
   ACTIONS 411 [aux_sym_ppUsesBlock_token1]; ACTIONS 413 [sym_kAdd; sym_kSub];
   ACTIONS 415 [sym_kAt]; ACTIONS 417 [sym_kTrue; sym_kFalse]; ACTIONS 419 [sym_labelNumber];
   ACTIONS 3 [sym__space]; ACTIONS 5 [sym_ppDirective]; ACTIONS 3 [sym_comment];
   ACTIONS 417 [sym_ppFragmentExpr]; ACTIONS 397 [sym_ppFragmentStmt];
   ACTIONS 403 [sym__literalStringMultiline]; ACTIONS 421 [sym_identifier];
   ACTIONS 423 [sym_kSpecialize]; ACTIONS 427 [sym_kAsm]; ACTIONS 429 [sym_kBegin];
   ACTIONS 431 [sym_kCase]; ACTIONS 433 [sym_kConst]; ACTIONS 3709 [sym_kEnd];
   ACTIONS 437 [sym_kFor]; ACTIONS 439 [sym_kFunction]; ACTIONS 441 [sym_kGoto];
   ACTIONS 443 [sym_kIf]; ACTIONS 445 [sym_kInherited]; ACTIONS 417 [sym_kNil];
   ACTIONS 415 [sym_kNot]; ACTIONS 439 [sym_kProcedure]; ACTIONS 447 [sym_kRaise];
   ACTIONS 449 [sym_kRepeat]; ACTIONS 451 [sym_kString]; ACTIONS 453 [sym_kTry];
   ACTIONS 455 [sym_kVar]; ACTIONS 457 [sym_kWhile]; ACTIONS 459 [sym_kWith]].

(** State 661. *)
Definition ts_parse_table_661 : parse_row :=
  [STATE 6213 [sym_if]; STATE 6327 [sym_ifElse; sym_while; sym_repeat; sym_for; sym_foreach;
   sym_try; sym_case; sym_block; sym_asm; sym_with; sym_raise; sym_statement; sym_goto;
   sym__statement]; STATE 15829 [sym_ifTr; sym_ifElseTr; sym_whileTr; sym_repeatTr; sym_forTr;
   sym_foreachTr; sym_tryTr; sym_caseTr]; STATE 14251 [sym_blockTr]; STATE 15829 [sym_asmTr;
   sym_withTr; sym_raiseTr; sym_statementTr; sym_gotoTr; sym__statementTr];
   STATE 13915 [sym_assignment]; STATE 11785 [sym_varAssignDef]; STATE 13915 [sym_varDef;
   sym_constDef]; STATE 6166 [sym_label]; STATE 15829 [sym__statementsTr]; STATE 8019 [sym__expr;
   sym_exprConditional]; STATE 7478 [sym__ref; sym_lambda; sym_inherited; sym_exprDot;
   sym_exprDeref; sym_exprAs; sym_exprTpl; sym_exprSubscript; sym_exprCall];
   STATE 8019 [sym_exprBinary; sym_exprUnary]; STATE 7478 [sym_exprParens; sym_exprBrackets;
   sym__literal; sym_literalString]; STATE 6664 [sym__literalString; sym_literalChar];
   STATE 7478 [sym_literalNumber]; STATE 7742 [sym__literalInt; sym__literalFloat];
   STATE 1380 [sym__ppIf]; STATE 6327 [sym__ppStatementBlock];
   STATE 11840 [aux_sym_labeledStatement_repeat1]; STATE 863 [aux_sym__statementsTr_repeat1];
   STATE 6664 [aux_sym_literalString_repeat1]; ACTIONS 397 [anon_sym_SEMI];
   ACTIONS 399 [anon_sym_LBRACK]; ACTIONS 401 [anon_sym_LPAREN];
   ACTIONS 403 [aux_sym__literalString_token1]; ACTIONS 405 [anon_sym_POUND];
   ACTIONS 407 [aux_sym__literalInt_token1]; ACTIONS 409 [aux_sym__literalInt_token2;
   aux_sym__literalInt_token3]; ACTIONS 407 [aux_sym__literalFloat_token1];
   ACTIONS 411 [aux_sym_ppUsesBlock_token1]; ACTIONS 413 [sym_kAdd; sym_kSub];
   ACTIONS 415 [sym_kAt]; ACTIONS 417 [sym_kTrue; sym_kFalse]; ACTIONS 419 [sym_labelNumber];
   ACTIONS 3 [sym__space]; ACTIONS 5 [sym_ppDirective]; ACTIONS 3 [sym_comment];
   ACTIONS 417 [sym_ppFragmentExpr]; ACTIONS 397 [sym_ppFragmentStmt];
   ACTIONS 403 [sym__literalStringMultiline]; ACTIONS 421 [sym_identifier];
   ACTIONS 423 [sym_kSpecialize]; ACTIONS 427 [sym_kAsm]; ACTIONS 429 [sym_kBegin];
   ACTIONS 431 [sym_kCase]; ACTIONS 433 [sym_kConst]; ACTIONS 1375 [sym_kEnd];
   ACTIONS 437 [sym_kFor]; ACTIONS 439 [sym_kFunction]; ACTIONS 441 [sym_kGoto];
   ACTIONS 443 [sym_kIf]; ACTIONS 445 [sym_kInherited]; ACTIONS 417 [sym_kNil];
   ACTIONS 415 [sym_kNot]; ACTIONS 439 [sym_kProcedure]; ACTIONS 447 [sym_kRaise];
   ACTIONS 449 [sym_kRepeat]; ACTIONS 451 [sym_kString]; ACTIONS 453 [sym_kTry];
   ACTIONS 455 [sym_kVar]; ACTIONS 457 [sym_kWhile]; ACTIONS 459 [sym_kWith]].

(** State 662. *)
Definition ts_parse_table_662 : parse_row :=
  [STATE 6213 [sym_if]; STATE 6327 [sym_ifElse; sym_while; sym_repeat; sym_for; sym_foreach;
   sym_try; sym_case; sym_block; sym_asm; sym_with; sym_raise; sym_statement; sym_goto;
   sym__statement]; STATE 15834 [sym_ifTr; sym_ifElseTr; sym_whileTr; sym_repeatTr; sym_forTr;
   sym_foreachTr; sym_tryTr; sym_caseTr]; STATE 14251 [sym_blockTr]; STATE 15834 [sym_asmTr;
   sym_withTr; sym_raiseTr; sym_statementTr; sym_gotoTr; sym__statementTr];
   STATE 13915 [sym_assignment]; STATE 11785 [sym_varAssignDef]; STATE 13915 [sym_varDef;
   sym_constDef]; STATE 6166 [sym_label]; STATE 15834 [sym__statementsTr]; STATE 8019 [sym__expr;
   sym_exprConditional]; STATE 7478 [sym__ref; sym_lambda; sym_inherited; sym_exprDot;
   sym_exprDeref; sym_exprAs; sym_exprTpl; sym_exprSubscript; sym_exprCall];
   STATE 8019 [sym_exprBinary; sym_exprUnary]; STATE 7478 [sym_exprParens; sym_exprBrackets;
   sym__literal; sym_literalString]; STATE 6664 [sym__literalString; sym_literalChar];
   STATE 7478 [sym_literalNumber]; STATE 7742 [sym__literalInt; sym__literalFloat];
   STATE 1380 [sym__ppIf]; STATE 6327 [sym__ppStatementBlock];
   STATE 11840 [aux_sym_labeledStatement_repeat1]; STATE 863 [aux_sym__statementsTr_repeat1];
   STATE 6664 [aux_sym_literalString_repeat1]; ACTIONS 397 [anon_sym_SEMI];
   ACTIONS 399 [anon_sym_LBRACK]; ACTIONS 401 [anon_sym_LPAREN];
   ACTIONS 403 [aux_sym__literalString_token1]; ACTIONS 405 [anon_sym_POUND];
   ACTIONS 407 [aux_sym__literalInt_token1]; ACTIONS 409 [aux_sym__literalInt_token2;
   aux_sym__literalInt_token3]; ACTIONS 407 [aux_sym__literalFloat_token1];
   ACTIONS 411 [aux_sym_ppUsesBlock_token1]; ACTIONS 413 [sym_kAdd; sym_kSub];
   ACTIONS 415 [sym_kAt]; ACTIONS 417 [sym_kTrue; sym_kFalse]; ACTIONS 419 [sym_labelNumber];
   ACTIONS 3 [sym__space]; ACTIONS 5 [sym_ppDirective]; ACTIONS 3 [sym_comment];
   ACTIONS 417 [sym_ppFragmentExpr]; ACTIONS 397 [sym_ppFragmentStmt];
   ACTIONS 403 [sym__literalStringMultiline]; ACTIONS 421 [sym_identifier];
   ACTIONS 423 [sym_kSpecialize]; ACTIONS 427 [sym_kAsm]; ACTIONS 429 [sym_kBegin];
   ACTIONS 431 [sym_kCase]; ACTIONS 433 [sym_kConst]; ACTIONS 1379 [sym_kEnd];
   ACTIONS 437 [sym_kFor]; ACTIONS 439 [sym_kFunction]; ACTIONS 441 [sym_kGoto];
   ACTIONS 443 [sym_kIf]; ACTIONS 445 [sym_kInherited]; ACTIONS 417 [sym_kNil];
   ACTIONS 415 [sym_kNot]; ACTIONS 439 [sym_kProcedure]; ACTIONS 447 [sym_kRaise];
   ACTIONS 449 [sym_kRepeat]; ACTIONS 451 [sym_kString]; ACTIONS 453 [sym_kTry];
   ACTIONS 455 [sym_kVar]; ACTIONS 457 [sym_kWhile]; ACTIONS 459 [sym_kWith]].

(** State 663. *)
Definition ts_parse_table_663 : parse_row :=
  [STATE 6213 [sym_if]; STATE 6327 [sym_ifElse; sym_while; sym_repeat; sym_for; sym_foreach;
   sym_try; sym_case; sym_block; sym_asm; sym_with; sym_raise; sym_statement; sym_goto;
   sym__statement]; STATE 15837 [sym_ifTr; sym_ifElseTr; sym_whileTr; sym_repeatTr; sym_forTr;
   sym_foreachTr; sym_tryTr; sym_caseTr]; STATE 14251 [sym_blockTr]; STATE 15837 [sym_asmTr;
   sym_withTr; sym_raiseTr; sym_statementTr; sym_gotoTr; sym__statementTr];
   STATE 13915 [sym_assignment]; STATE 11785 [sym_varAssignDef]; STATE 13915 [sym_varDef;
   sym_constDef]; STATE 6166 [sym_label]; STATE 15837 [sym__statementsTr]; STATE 8019 [sym__expr;
   sym_exprConditional]; STATE 7478 [sym__ref; sym_lambda; sym_inherited; sym_exprDot;
   sym_exprDeref; sym_exprAs; sym_exprTpl; sym_exprSubscript; sym_exprCall];
   STATE 8019 [sym_exprBinary; sym_exprUnary]; STATE 7478 [sym_exprParens; sym_exprBrackets;
   sym__literal; sym_literalString]; STATE 6664 [sym__literalString; sym_literalChar];
   STATE 7478 [sym_literalNumber]; STATE 7742 [sym__literalInt; sym__literalFloat];
   STATE 1380 [sym__ppIf]; STATE 6327 [sym__ppStatementBlock];
   STATE 11840 [aux_sym_labeledStatement_repeat1]; STATE 863 [aux_sym__statementsTr_repeat1];
   STATE 6664 [aux_sym_literalString_repeat1]; ACTIONS 397 [anon_sym_SEMI];
   ACTIONS 399 [anon_sym_LBRACK]; ACTIONS 401 [anon_sym_LPAREN];
   ACTIONS 403 [aux_sym__literalString_token1]; ACTIONS 405 [anon_sym_POUND];
   ACTIONS 407 [aux_sym__literalInt_token1]; ACTIONS 409 [aux_sym__literalInt_token2;
   aux_sym__literalInt_token3]; ACTIONS 407 [aux_sym__literalFloat_token1];
   ACTIONS 411 [aux_sym_ppUsesBlock_token1]; ACTIONS 413 [sym_kAdd; sym_kSub];
   ACTIONS 415 [sym_kAt]; ACTIONS 417 [sym_kTrue; sym_kFalse]; ACTIONS 419 [sym_labelNumber];
   ACTIONS 3 [sym__space]; ACTIONS 5 [sym_ppDirective]; ACTIONS 3 [sym_comment];
   ACTIONS 417 [sym_ppFragmentExpr]; ACTIONS 397 [sym_ppFragmentStmt];
   ACTIONS 403 [sym__literalStringMultiline]; ACTIONS 421 [sym_identifier];
   ACTIONS 423 [sym_kSpecialize]; ACTIONS 427 [sym_kAsm]; ACTIONS 429 [sym_kBegin];
   ACTIONS 431 [sym_kCase]; ACTIONS 433 [sym_kConst]; ACTIONS 3711 [sym_kEnd];
   ACTIONS 437 [sym_kFor]; ACTIONS 439 [sym_kFunction]; ACTIONS 441 [sym_kGoto];
   ACTIONS 443 [sym_kIf]; ACTIONS 445 [sym_kInherited]; ACTIONS 417 [sym_kNil];
   ACTIONS 415 [sym_kNot]; ACTIONS 439 [sym_kProcedure]; ACTIONS 447 [sym_kRaise];
   ACTIONS 449 [sym_kRepeat]; ACTIONS 451 [sym_kString]; ACTIONS 453 [sym_kTry];
   ACTIONS 455 [sym_kVar]; ACTIONS 457 [sym_kWhile]; ACTIONS 459 [sym_kWith]].

(** State 664. *)
Definition ts_parse_table_664 : parse_row :=
  [STATE 6213 [sym_if]; STATE 6327 [sym_ifElse; sym_while; sym_repeat; sym_for; sym_foreach;
   sym_try; sym_case; sym_block; sym_asm; sym_with; sym_raise; sym_statement; sym_goto;
   sym__statement]; STATE 15869 [sym_ifTr; sym_ifElseTr; sym_whileTr; sym_repeatTr; sym_forTr;
   sym_foreachTr; sym_tryTr; sym_caseTr]; STATE 14251 [sym_blockTr]; STATE 15869 [sym_asmTr;
   sym_withTr; sym_raiseTr; sym_statementTr; sym_gotoTr; sym__statementTr];
   STATE 13915 [sym_assignment]; STATE 11785 [sym_varAssignDef]; STATE 13915 [sym_varDef;
   sym_constDef]; STATE 6166 [sym_label]; STATE 15869 [sym__statementsTr]; STATE 8019 [sym__expr;
   sym_exprConditional]; STATE 7478 [sym__ref; sym_lambda; sym_inherited; sym_exprDot;
   sym_exprDeref; sym_exprAs; sym_exprTpl; sym_exprSubscript; sym_exprCall];
   STATE 8019 [sym_exprBinary; sym_exprUnary]; STATE 7478 [sym_exprParens; sym_exprBrackets;
   sym__literal; sym_literalString]; STATE 6664 [sym__literalString; sym_literalChar];
   STATE 7478 [sym_literalNumber]; STATE 7742 [sym__literalInt; sym__literalFloat];
   STATE 1380 [sym__ppIf]; STATE 6327 [sym__ppStatementBlock];
   STATE 11840 [aux_sym_labeledStatement_repeat1]; STATE 863 [aux_sym__statementsTr_repeat1];
   STATE 6664 [aux_sym_literalString_repeat1]; ACTIONS 397 [anon_sym_SEMI];
   ACTIONS 399 [anon_sym_LBRACK]; ACTIONS 401 [anon_sym_LPAREN];
   ACTIONS 403 [aux_sym__literalString_token1]; ACTIONS 405 [anon_sym_POUND];
   ACTIONS 407 [aux_sym__literalInt_token1]; ACTIONS 409 [aux_sym__literalInt_token2;
   aux_sym__literalInt_token3]; ACTIONS 407 [aux_sym__literalFloat_token1];
   ACTIONS 411 [aux_sym_ppUsesBlock_token1]; ACTIONS 413 [sym_kAdd; sym_kSub];
   ACTIONS 415 [sym_kAt]; ACTIONS 417 [sym_kTrue; sym_kFalse]; ACTIONS 419 [sym_labelNumber];
   ACTIONS 3 [sym__space]; ACTIONS 5 [sym_ppDirective]; ACTIONS 3 [sym_comment];
   ACTIONS 417 [sym_ppFragmentExpr]; ACTIONS 397 [sym_ppFragmentStmt];
   ACTIONS 403 [sym__literalStringMultiline]; ACTIONS 421 [sym_identifier];
   ACTIONS 423 [sym_kSpecialize]; ACTIONS 427 [sym_kAsm]; ACTIONS 429 [sym_kBegin];
   ACTIONS 431 [sym_kCase]; ACTIONS 433 [sym_kConst]; ACTIONS 3713 [sym_kEnd];
   ACTIONS 437 [sym_kFor]; ACTIONS 439 [sym_kFunction]; ACTIONS 441 [sym_kGoto];
   ACTIONS 443 [sym_kIf]; ACTIONS 445 [sym_kInherited]; ACTIONS 417 [sym_kNil];
   ACTIONS 415 [sym_kNot]; ACTIONS 439 [sym_kProcedure]; ACTIONS 447 [sym_kRaise];
   ACTIONS 449 [sym_kRepeat]; ACTIONS 451 [sym_kString]; ACTIONS 453 [sym_kTry];
   ACTIONS 455 [sym_kVar]; ACTIONS 457 [sym_kWhile]; ACTIONS 459 [sym_kWith]].

(** State 665. *)
Definition ts_parse_table_665 : parse_row :=
  [STATE 6213 [sym_if]; STATE 6327 [sym_ifElse; sym_while; sym_repeat; sym_for; sym_foreach;
   sym_try; sym_case; sym_block; sym_asm; sym_with; sym_raise; sym_statement; sym_goto;
   sym__statement]; STATE 15892 [sym_ifTr; sym_ifElseTr; sym_whileTr; sym_repeatTr; sym_forTr;
   sym_foreachTr; sym_tryTr; sym_caseTr]; STATE 14251 [sym_blockTr]; STATE 15892 [sym_asmTr;
   sym_withTr; sym_raiseTr; sym_statementTr; sym_gotoTr; sym__statementTr];
   STATE 13915 [sym_assignment]; STATE 11785 [sym_varAssignDef]; STATE 13915 [sym_varDef;
   sym_constDef]; STATE 6166 [sym_label]; STATE 15892 [sym__statementsTr]; STATE 8019 [sym__expr;
   sym_exprConditional]; STATE 7478 [sym__ref; sym_lambda; sym_inherited; sym_exprDot;
   sym_exprDeref; sym_exprAs; sym_exprTpl; sym_exprSubscript; sym_exprCall];
   STATE 8019 [sym_exprBinary; sym_exprUnary]; STATE 7478 [sym_exprParens; sym_exprBrackets;
   sym__literal; sym_literalString]; STATE 6664 [sym__literalString; sym_literalChar];
   STATE 7478 [sym_literalNumber]; STATE 7742 [sym__literalInt; sym__literalFloat];
   STATE 1380 [sym__ppIf]; STATE 6327 [sym__ppStatementBlock];
   STATE 11840 [aux_sym_labeledStatement_repeat1]; STATE 863 [aux_sym__statementsTr_repeat1];
   STATE 6664 [aux_sym_literalString_repeat1]; ACTIONS 397 [anon_sym_SEMI];
   ACTIONS 399 [anon_sym_LBRACK]; ACTIONS 401 [anon_sym_LPAREN];
   ACTIONS 403 [aux_sym__literalString_token1]; ACTIONS 405 [anon_sym_POUND];
   ACTIONS 407 [aux_sym__literalInt_token1]; ACTIONS 409 [aux_sym__literalInt_token2;
   aux_sym__literalInt_token3]; ACTIONS 407 [aux_sym__literalFloat_token1];
   ACTIONS 411 [aux_sym_ppUsesBlock_token1]; ACTIONS 413 [sym_kAdd; sym_kSub];
   ACTIONS 415 [sym_kAt]; ACTIONS 417 [sym_kTrue; sym_kFalse]; ACTIONS 419 [sym_labelNumber];
   ACTIONS 3 [sym__space]; ACTIONS 5 [sym_ppDirective]; ACTIONS 3 [sym_comment];
   ACTIONS 417 [sym_ppFragmentExpr]; ACTIONS 397 [sym_ppFragmentStmt];
   ACTIONS 403 [sym__literalStringMultiline]; ACTIONS 421 [sym_identifier];
   ACTIONS 423 [sym_kSpecialize]; ACTIONS 427 [sym_kAsm]; ACTIONS 429 [sym_kBegin];
   ACTIONS 431 [sym_kCase]; ACTIONS 433 [sym_kConst]; ACTIONS 3715 [sym_kEnd];
   ACTIONS 437 [sym_kFor]; ACTIONS 439 [sym_kFunction]; ACTIONS 441 [sym_kGoto];
   ACTIONS 443 [sym_kIf]; ACTIONS 445 [sym_kInherited]; ACTIONS 417 [sym_kNil];
   ACTIONS 415 [sym_kNot]; ACTIONS 439 [sym_kProcedure]; ACTIONS 447 [sym_kRaise];
   ACTIONS 449 [sym_kRepeat]; ACTIONS 451 [sym_kString]; ACTIONS 453 [sym_kTry];
   ACTIONS 455 [sym_kVar]; ACTIONS 457 [sym_kWhile]; ACTIONS 459 [sym_kWith]].

(** State 666. *)
Definition ts_parse_table_666 : parse_row :=
  [STATE 6213 [sym_if]; STATE 6327 [sym_ifElse; sym_while; sym_repeat; sym_for; sym_foreach;
   sym_try; sym_case; sym_block; sym_asm; sym_with; sym_raise; sym_statement; sym_goto;
   sym__statement]; STATE 15938 [sym_ifTr; sym_ifElseTr; sym_whileTr; sym_repeatTr; sym_forTr;
   sym_foreachTr; sym_tryTr; sym_caseTr]; STATE 14251 [sym_blockTr]; STATE 15938 [sym_asmTr;
   sym_withTr; sym_raiseTr; sym_statementTr; sym_gotoTr; sym__statementTr];
   STATE 13915 [sym_assignment]; STATE 11785 [sym_varAssignDef]; STATE 13915 [sym_varDef;
   sym_constDef]; STATE 6166 [sym_label]; STATE 15938 [sym__statementsTr]; STATE 8019 [sym__expr;
   sym_exprConditional]; STATE 7478 [sym__ref; sym_lambda; sym_inherited; sym_exprDot;
   sym_exprDeref; sym_exprAs; sym_exprTpl; sym_exprSubscript; sym_exprCall];
   STATE 8019 [sym_exprBinary; sym_exprUnary]; STATE 7478 [sym_exprParens; sym_exprBrackets;
   sym__literal; sym_literalString]; STATE 6664 [sym__literalString; sym_literalChar];
   STATE 7478 [sym_literalNumber]; STATE 7742 [sym__literalInt; sym__literalFloat];
   STATE 1380 [sym__ppIf]; STATE 6327 [sym__ppStatementBlock];
   STATE 11840 [aux_sym_labeledStatement_repeat1]; STATE 863 [aux_sym__statementsTr_repeat1];
   STATE 6664 [aux_sym_literalString_repeat1]; ACTIONS 397 [anon_sym_SEMI];
   ACTIONS 399 [anon_sym_LBRACK]; ACTIONS 401 [anon_sym_LPAREN];
   ACTIONS 403 [aux_sym__literalString_token1]; ACTIONS 405 [anon_sym_POUND];
   ACTIONS 407 [aux_sym__literalInt_token1]; ACTIONS 409 [aux_sym__literalInt_token2;
   aux_sym__literalInt_token3]; ACTIONS 407 [aux_sym__literalFloat_token1];
   ACTIONS 411 [aux_sym_ppUsesBlock_token1]; ACTIONS 413 [sym_kAdd; sym_kSub];
   ACTIONS 415 [sym_kAt]; ACTIONS 417 [sym_kTrue; sym_kFalse]; ACTIONS 419 [sym_labelNumber];
   ACTIONS 3 [sym__space]; ACTIONS 5 [sym_ppDirective]; ACTIONS 3 [sym_comment];
   ACTIONS 417 [sym_ppFragmentExpr]; ACTIONS 397 [sym_ppFragmentStmt];
   ACTIONS 403 [sym__literalStringMultiline]; ACTIONS 421 [sym_identifier];
   ACTIONS 423 [sym_kSpecialize]; ACTIONS 427 [sym_kAsm]; ACTIONS 429 [sym_kBegin];
   ACTIONS 431 [sym_kCase]; ACTIONS 433 [sym_kConst]; ACTIONS 1424 [sym_kEnd];
   ACTIONS 437 [sym_kFor]; ACTIONS 439 [sym_kFunction]; ACTIONS 441 [sym_kGoto];
   ACTIONS 443 [sym_kIf]; ACTIONS 445 [sym_kInherited]; ACTIONS 417 [sym_kNil];
   ACTIONS 415 [sym_kNot]; ACTIONS 439 [sym_kProcedure]; ACTIONS 447 [sym_kRaise];
   ACTIONS 449 [sym_kRepeat]; ACTIONS 451 [sym_kString]; ACTIONS 453 [sym_kTry];
   ACTIONS 455 [sym_kVar]; ACTIONS 457 [sym_kWhile]; ACTIONS 459 [sym_kWith]].

(** State 667. *)
Definition ts_parse_table_667 : parse_row :=
  [STATE 6213 [sym_if]; STATE 6327 [sym_ifElse; sym_while; sym_repeat; sym_for; sym_foreach;
   sym_try; sym_case; sym_block; sym_asm; sym_with; sym_raise; sym_statement; sym_goto;
   sym__statement]; STATE 14299 [sym_ifTr; sym_ifElseTr; sym_whileTr; sym_repeatTr; sym_forTr;
   sym_foreachTr; sym_tryTr; sym_caseTr]; STATE 14251 [sym_blockTr]; STATE 14299 [sym_asmTr;
   sym_withTr; sym_raiseTr; sym_statementTr; sym_gotoTr; sym__statementTr];
   STATE 13915 [sym_assignment]; STATE 11785 [sym_varAssignDef]; STATE 13915 [sym_varDef;
   sym_constDef]; STATE 6166 [sym_label]; STATE 14299 [sym__statementsTr]; STATE 8019 [sym__expr;
   sym_exprConditional]; STATE 7478 [sym__ref; sym_lambda; sym_inherited; sym_exprDot;
   sym_exprDeref; sym_exprAs; sym_exprTpl; sym_exprSubscript; sym_exprCall];
   STATE 8019 [sym_exprBinary; sym_exprUnary]; STATE 7478 [sym_exprParens; sym_exprBrackets;
   sym__literal; sym_literalString]; STATE 6664 [sym__literalString; sym_literalChar];
   STATE 7478 [sym_literalNumber]; STATE 7742 [sym__literalInt; sym__literalFloat];
   STATE 1380 [sym__ppIf]; STATE 6327 [sym__ppStatementBlock];
   STATE 11840 [aux_sym_labeledStatement_repeat1]; STATE 863 [aux_sym__statementsTr_repeat1];
   STATE 6664 [aux_sym_literalString_repeat1]; ACTIONS 397 [anon_sym_SEMI];
   ACTIONS 399 [anon_sym_LBRACK]; ACTIONS 401 [anon_sym_LPAREN];
   ACTIONS 403 [aux_sym__literalString_token1]; ACTIONS 405 [anon_sym_POUND];
   ACTIONS 407 [aux_sym__literalInt_token1]; ACTIONS 409 [aux_sym__literalInt_token2;
   aux_sym__literalInt_token3]; ACTIONS 407 [aux_sym__literalFloat_token1];
   ACTIONS 411 [aux_sym_ppUsesBlock_token1]; ACTIONS 413 [sym_kAdd; sym_kSub];
   ACTIONS 415 [sym_kAt]; ACTIONS 417 [sym_kTrue; sym_kFalse]; ACTIONS 419 [sym_labelNumber];
   ACTIONS 3 [sym__space]; ACTIONS 5 [sym_ppDirective]; ACTIONS 3 [sym_comment];
   ACTIONS 417 [sym_ppFragmentExpr]; ACTIONS 397 [sym_ppFragmentStmt];
   ACTIONS 403 [sym__literalStringMultiline]; ACTIONS 421 [sym_identifier];
   ACTIONS 423 [sym_kSpecialize]; ACTIONS 427 [sym_kAsm]; ACTIONS 429 [sym_kBegin];
   ACTIONS 431 [sym_kCase]; ACTIONS 433 [sym_kConst]; ACTIONS 1428 [sym_kEnd];
   ACTIONS 437 [sym_kFor]; ACTIONS 439 [sym_kFunction]; ACTIONS 441 [sym_kGoto];
   ACTIONS 443 [sym_kIf]; ACTIONS 445 [sym_kInherited]; ACTIONS 417 [sym_kNil];
   ACTIONS 415 [sym_kNot]; ACTIONS 439 [sym_kProcedure]; ACTIONS 447 [sym_kRaise];
   ACTIONS 449 [sym_kRepeat]; ACTIONS 451 [sym_kString]; ACTIONS 453 [sym_kTry];
   ACTIONS 455 [sym_kVar]; ACTIONS 457 [sym_kWhile]; ACTIONS 459 [sym_kWith]].

(** State 668. *)
Definition ts_parse_table_668 : parse_row :=
  [STATE 6213 [sym_if]; STATE 6327 [sym_ifElse; sym_while; sym_repeat; sym_for; sym_foreach;
   sym_try; sym_case; sym_block; sym_asm; sym_with; sym_raise; sym_statement; sym_goto;
   sym__statement]; STATE 14313 [sym_ifTr; sym_ifElseTr; sym_whileTr; sym_repeatTr; sym_forTr;
   sym_foreachTr; sym_tryTr; sym_caseTr]; STATE 14251 [sym_blockTr]; STATE 14313 [sym_asmTr;
   sym_withTr; sym_raiseTr; sym_statementTr; sym_gotoTr; sym__statementTr];
   STATE 13915 [sym_assignment]; STATE 11785 [sym_varAssignDef]; STATE 13915 [sym_varDef;
   sym_constDef]; STATE 6166 [sym_label]; STATE 14313 [sym__statementsTr]; STATE 8019 [sym__expr;
   sym_exprConditional]; STATE 7478 [sym__ref; sym_lambda; sym_inherited; sym_exprDot;
   sym_exprDeref; sym_exprAs; sym_exprTpl; sym_exprSubscript; sym_exprCall];
   STATE 8019 [sym_exprBinary; sym_exprUnary]; STATE 7478 [sym_exprParens; sym_exprBrackets;
   sym__literal; sym_literalString]; STATE 6664 [sym__literalString; sym_literalChar];
   STATE 7478 [sym_literalNumber]; STATE 7742 [sym__literalInt; sym__literalFloat];
   STATE 1380 [sym__ppIf]; STATE 6327 [sym__ppStatementBlock];
   STATE 11840 [aux_sym_labeledStatement_repeat1]; STATE 863 [aux_sym__statementsTr_repeat1];
   STATE 6664 [aux_sym_literalString_repeat1]; ACTIONS 397 [anon_sym_SEMI];
   ACTIONS 399 [anon_sym_LBRACK]; ACTIONS 401 [anon_sym_LPAREN];
   ACTIONS 403 [aux_sym__literalString_token1]; ACTIONS 405 [anon_sym_POUND];
   ACTIONS 407 [aux_sym__literalInt_token1]; ACTIONS 409 [aux_sym__literalInt_token2;
   aux_sym__literalInt_token3]; ACTIONS 407 [aux_sym__literalFloat_token1];
   ACTIONS 411 [aux_sym_ppUsesBlock_token1]; ACTIONS 413 [sym_kAdd; sym_kSub];
   ACTIONS 415 [sym_kAt]; ACTIONS 417 [sym_kTrue; sym_kFalse]; ACTIONS 419 [sym_labelNumber];
   ACTIONS 3 [sym__space]; ACTIONS 5 [sym_ppDirective]; ACTIONS 3 [sym_comment];
   ACTIONS 417 [sym_ppFragmentExpr]; ACTIONS 397 [sym_ppFragmentStmt];
   ACTIONS 403 [sym__literalStringMultiline]; ACTIONS 421 [sym_identifier];
   ACTIONS 423 [sym_kSpecialize]; ACTIONS 427 [sym_kAsm]; ACTIONS 429 [sym_kBegin];
   ACTIONS 431 [sym_kCase]; ACTIONS 433 [sym_kConst]; ACTIONS 3717 [sym_kEnd];
   ACTIONS 437 [sym_kFor]; ACTIONS 439 [sym_kFunction]; ACTIONS 441 [sym_kGoto];
   ACTIONS 443 [sym_kIf]; ACTIONS 445 [sym_kInherited]; ACTIONS 417 [sym_kNil];
   ACTIONS 415 [sym_kNot]; ACTIONS 439 [sym_kProcedure]; ACTIONS 447 [sym_kRaise];
   ACTIONS 449 [sym_kRepeat]; ACTIONS 451 [sym_kString]; ACTIONS 453 [sym_kTry];
   ACTIONS 455 [sym_kVar]; ACTIONS 457 [sym_kWhile]; ACTIONS 459 [sym_kWith]].

(** State 669. *)
Definition ts_parse_table_669 : parse_row :=
  [STATE 6213 [sym_if]; STATE 6327 [sym_ifElse; sym_while; sym_repeat; sym_for; sym_foreach;
   sym_try; sym_case; sym_block; sym_asm; sym_with; sym_raise; sym_statement; sym_goto;
   sym__statement]; STATE 14165 [sym_ifTr; sym_ifElseTr; sym_whileTr; sym_repeatTr; sym_forTr;
   sym_foreachTr; sym_tryTr; sym_caseTr]; STATE 14251 [sym_blockTr]; STATE 14165 [sym_asmTr;
   sym_withTr; sym_raiseTr; sym_statementTr; sym_gotoTr; sym__statementTr];
   STATE 13915 [sym_assignment]; STATE 11785 [sym_varAssignDef]; STATE 13915 [sym_varDef;
   sym_constDef]; STATE 6166 [sym_label]; STATE 14165 [sym__statementsTr]; STATE 8019 [sym__expr;
   sym_exprConditional]; STATE 7478 [sym__ref; sym_lambda; sym_inherited; sym_exprDot;
   sym_exprDeref; sym_exprAs; sym_exprTpl; sym_exprSubscript; sym_exprCall];
   STATE 8019 [sym_exprBinary; sym_exprUnary]; STATE 7478 [sym_exprParens; sym_exprBrackets;
   sym__literal; sym_literalString]; STATE 6664 [sym__literalString; sym_literalChar];
   STATE 7478 [sym_literalNumber]; STATE 7742 [sym__literalInt; sym__literalFloat];
   STATE 1380 [sym__ppIf]; STATE 6327 [sym__ppStatementBlock];
   STATE 11840 [aux_sym_labeledStatement_repeat1]; STATE 863 [aux_sym__statementsTr_repeat1];
   STATE 6664 [aux_sym_literalString_repeat1]; ACTIONS 397 [anon_sym_SEMI];
   ACTIONS 399 [anon_sym_LBRACK]; ACTIONS 401 [anon_sym_LPAREN];
   ACTIONS 403 [aux_sym__literalString_token1]; ACTIONS 405 [anon_sym_POUND];
   ACTIONS 407 [aux_sym__literalInt_token1]; ACTIONS 409 [aux_sym__literalInt_token2;
   aux_sym__literalInt_token3]; ACTIONS 407 [aux_sym__literalFloat_token1];
   ACTIONS 411 [aux_sym_ppUsesBlock_token1]; ACTIONS 413 [sym_kAdd; sym_kSub];
   ACTIONS 415 [sym_kAt]; ACTIONS 417 [sym_kTrue; sym_kFalse]; ACTIONS 419 [sym_labelNumber];
   ACTIONS 3 [sym__space]; ACTIONS 5 [sym_ppDirective]; ACTIONS 3 [sym_comment];
   ACTIONS 417 [sym_ppFragmentExpr]; ACTIONS 397 [sym_ppFragmentStmt];
   ACTIONS 403 [sym__literalStringMultiline]; ACTIONS 421 [sym_identifier];
   ACTIONS 423 [sym_kSpecialize]; ACTIONS 427 [sym_kAsm]; ACTIONS 429 [sym_kBegin];
   ACTIONS 431 [sym_kCase]; ACTIONS 433 [sym_kConst]; ACTIONS 3719 [sym_kEnd];
   ACTIONS 437 [sym_kFor]; ACTIONS 439 [sym_kFunction]; ACTIONS 441 [sym_kGoto];
   ACTIONS 443 [sym_kIf]; ACTIONS 445 [sym_kInherited]; ACTIONS 417 [sym_kNil];
   ACTIONS 415 [sym_kNot]; ACTIONS 439 [sym_kProcedure]; ACTIONS 447 [sym_kRaise];
   ACTIONS 449 [sym_kRepeat]; ACTIONS 451 [sym_kString]; ACTIONS 453 [sym_kTry];
   ACTIONS 455 [sym_kVar]; ACTIONS 457 [sym_kWhile]; ACTIONS 459 [sym_kWith]].

(** State 670. *)
Definition ts_parse_table_670 : parse_row :=
  [STATE 6213 [sym_if]; STATE 6327 [sym_ifElse; sym_while; sym_repeat; sym_for; sym_foreach;
   sym_try; sym_case; sym_block; sym_asm; sym_with; sym_raise; sym_statement; sym_goto;
   sym__statement]; STATE 14376 [sym_ifTr; sym_ifElseTr; sym_whileTr; sym_repeatTr; sym_forTr;
   sym_foreachTr; sym_tryTr; sym_caseTr]; STATE 14251 [sym_blockTr]; STATE 14376 [sym_asmTr;
   sym_withTr; sym_raiseTr; sym_statementTr; sym_gotoTr; sym__statementTr];
   STATE 13915 [sym_assignment]; STATE 11785 [sym_varAssignDef]; STATE 13915 [sym_varDef;
   sym_constDef]; STATE 6166 [sym_label]; STATE 14376 [sym__statementsTr]; STATE 8019 [sym__expr;
   sym_exprConditional]; STATE 7478 [sym__ref; sym_lambda; sym_inherited; sym_exprDot;
   sym_exprDeref; sym_exprAs; sym_exprTpl; sym_exprSubscript; sym_exprCall];
   STATE 8019 [sym_exprBinary; sym_exprUnary]; STATE 7478 [sym_exprParens; sym_exprBrackets;
   sym__literal; sym_literalString]; STATE 6664 [sym__literalString; sym_literalChar];
   STATE 7478 [sym_literalNumber]; STATE 7742 [sym__literalInt; sym__literalFloat];
   STATE 1380 [sym__ppIf]; STATE 6327 [sym__ppStatementBlock];
   STATE 11840 [aux_sym_labeledStatement_repeat1]; STATE 863 [aux_sym__statementsTr_repeat1];
   STATE 6664 [aux_sym_literalString_repeat1]; ACTIONS 397 [anon_sym_SEMI];
   ACTIONS 399 [anon_sym_LBRACK]; ACTIONS 401 [anon_sym_LPAREN];
   ACTIONS 403 [aux_sym__literalString_token1]; ACTIONS 405 [anon_sym_POUND];
   ACTIONS 407 [aux_sym__literalInt_token1]; ACTIONS 409 [aux_sym__literalInt_token2;
   aux_sym__literalInt_token3]; ACTIONS 407 [aux_sym__literalFloat_token1];
   ACTIONS 411 [aux_sym_ppUsesBlock_token1]; ACTIONS 413 [sym_kAdd; sym_kSub];
   ACTIONS 415 [sym_kAt]; ACTIONS 417 [sym_kTrue; sym_kFalse]; ACTIONS 419 [sym_labelNumber];
   ACTIONS 3 [sym__space]; ACTIONS 5 [sym_ppDirective]; ACTIONS 3 [sym_comment];
   ACTIONS 417 [sym_ppFragmentExpr]; ACTIONS 397 [sym_ppFragmentStmt];
   ACTIONS 403 [sym__literalStringMultiline]; ACTIONS 421 [sym_identifier];
   ACTIONS 423 [sym_kSpecialize]; ACTIONS 427 [sym_kAsm]; ACTIONS 429 [sym_kBegin];
   ACTIONS 431 [sym_kCase]; ACTIONS 433 [sym_kConst]; ACTIONS 3721 [sym_kEnd];
   ACTIONS 437 [sym_kFor]; ACTIONS 439 [sym_kFunction]; ACTIONS 441 [sym_kGoto];
   ACTIONS 443 [sym_kIf]; ACTIONS 445 [sym_kInherited]; ACTIONS 417 [sym_kNil];
   ACTIONS 415 [sym_kNot]; ACTIONS 439 [sym_kProcedure]; ACTIONS 447 [sym_kRaise];
   ACTIONS 449 [sym_kRepeat]; ACTIONS 451 [sym_kString]; ACTIONS 453 [sym_kTry];
   ACTIONS 455 [sym_kVar]; ACTIONS 457 [sym_kWhile]; ACTIONS 459 [sym_kWith]].

(** State 671. *)
Definition ts_parse_table_671 : parse_row :=
  [STATE 6213 [sym_if]; STATE 6327 [sym_ifElse; sym_while; sym_repeat; sym_for; sym_foreach;
   sym_try; sym_case; sym_block; sym_asm; sym_with; sym_raise; sym_statement; sym_goto;
   sym__statement]; STATE 15742 [sym_ifTr; sym_ifElseTr; sym_whileTr; sym_repeatTr; sym_forTr;
   sym_foreachTr; sym_tryTr; sym_caseTr]; STATE 14251 [sym_blockTr]; STATE 15742 [sym_asmTr;
   sym_withTr; sym_raiseTr; sym_statementTr; sym_gotoTr; sym__statementTr];
   STATE 13915 [sym_assignment]; STATE 11785 [sym_varAssignDef]; STATE 13915 [sym_varDef;
   sym_constDef]; STATE 6166 [sym_label]; STATE 15742 [sym__statementsTr]; STATE 8019 [sym__expr;
   sym_exprConditional]; STATE 7478 [sym__ref; sym_lambda; sym_inherited; sym_exprDot;
   sym_exprDeref; sym_exprAs; sym_exprTpl; sym_exprSubscript; sym_exprCall];
   STATE 8019 [sym_exprBinary; sym_exprUnary]; STATE 7478 [sym_exprParens; sym_exprBrackets;
   sym__literal; sym_literalString]; STATE 6664 [sym__literalString; sym_literalChar];
   STATE 7478 [sym_literalNumber]; STATE 7742 [sym__literalInt; sym__literalFloat];
   STATE 1380 [sym__ppIf]; STATE 6327 [sym__ppStatementBlock];
   STATE 11840 [aux_sym_labeledStatement_repeat1]; STATE 863 [aux_sym__statementsTr_repeat1];
   STATE 6664 [aux_sym_literalString_repeat1]; ACTIONS 397 [anon_sym_SEMI];
   ACTIONS 399 [anon_sym_LBRACK]; ACTIONS 401 [anon_sym_LPAREN];
   ACTIONS 403 [aux_sym__literalString_token1]; ACTIONS 405 [anon_sym_POUND];
   ACTIONS 407 [aux_sym__literalInt_token1]; ACTIONS 409 [aux_sym__literalInt_token2;
   aux_sym__literalInt_token3]; ACTIONS 407 [aux_sym__literalFloat_token1];
   ACTIONS 411 [aux_sym_ppUsesBlock_token1]; ACTIONS 413 [sym_kAdd; sym_kSub];
   ACTIONS 415 [sym_kAt]; ACTIONS 417 [sym_kTrue; sym_kFalse]; ACTIONS 419 [sym_labelNumber];
   ACTIONS 3 [sym__space]; ACTIONS 5 [sym_ppDirective]; ACTIONS 3 [sym_comment];
   ACTIONS 417 [sym_ppFragmentExpr]; ACTIONS 397 [sym_ppFragmentStmt];
   ACTIONS 403 [sym__literalStringMultiline]; ACTIONS 421 [sym_identifier];
   ACTIONS 423 [sym_kSpecialize]; ACTIONS 427 [sym_kAsm]; ACTIONS 429 [sym_kBegin];
   ACTIONS 431 [sym_kCase]; ACTIONS 433 [sym_kConst]; ACTIONS 1471 [sym_kEnd];
   ACTIONS 437 [sym_kFor]; ACTIONS 439 [sym_kFunction]; ACTIONS 441 [sym_kGoto];
   ACTIONS 443 [sym_kIf]; ACTIONS 445 [sym_kInherited]; ACTIONS 417 [sym_kNil];
   ACTIONS 415 [sym_kNot]; ACTIONS 439 [sym_kProcedure]; ACTIONS 447 [sym_kRaise];
   ACTIONS 449 [sym_kRepeat]; ACTIONS 451 [sym_kString]; ACTIONS 453 [sym_kTry];
   ACTIONS 455 [sym_kVar]; ACTIONS 457 [sym_kWhile]; ACTIONS 459 [sym_kWith]].

(** State 672. *)
Definition ts_parse_table_672 : parse_row :=
  [STATE 6213 [sym_if]; STATE 6327 [sym_ifElse; sym_while; sym_repeat; sym_for; sym_foreach;
   sym_try; sym_case; sym_block; sym_asm; sym_with; sym_raise; sym_statement; sym_goto;
   sym__statement]; STATE 15940 [sym_ifTr; sym_ifElseTr; sym_whileTr; sym_repeatTr; sym_forTr;
   sym_foreachTr; sym_tryTr; sym_caseTr]; STATE 14251 [sym_blockTr]; STATE 15940 [sym_asmTr;
   sym_withTr; sym_raiseTr; sym_statementTr; sym_gotoTr; sym__statementTr];
   STATE 13915 [sym_assignment]; STATE 11785 [sym_varAssignDef]; STATE 13915 [sym_varDef;
   sym_constDef]; STATE 6166 [sym_label]; STATE 15940 [sym__statementsTr]; STATE 8019 [sym__expr;
   sym_exprConditional]; STATE 7478 [sym__ref; sym_lambda; sym_inherited; sym_exprDot;
   sym_exprDeref; sym_exprAs; sym_exprTpl; sym_exprSubscript; sym_exprCall];
   STATE 8019 [sym_exprBinary; sym_exprUnary]; STATE 7478 [sym_exprParens; sym_exprBrackets;
   sym__literal; sym_literalString]; STATE 6664 [sym__literalString; sym_literalChar];
   STATE 7478 [sym_literalNumber]; STATE 7742 [sym__literalInt; sym__literalFloat];
   STATE 1380 [sym__ppIf]; STATE 6327 [sym__ppStatementBlock];
   STATE 11840 [aux_sym_labeledStatement_repeat1]; STATE 863 [aux_sym__statementsTr_repeat1];
   STATE 6664 [aux_sym_literalString_repeat1]; ACTIONS 397 [anon_sym_SEMI];
   ACTIONS 399 [anon_sym_LBRACK]; ACTIONS 401 [anon_sym_LPAREN];
   ACTIONS 403 [aux_sym__literalString_token1]; ACTIONS 405 [anon_sym_POUND];
   ACTIONS 407 [aux_sym__literalInt_token1]; ACTIONS 409 [aux_sym__literalInt_token2;
   aux_sym__literalInt_token3]; ACTIONS 407 [aux_sym__literalFloat_token1];
   ACTIONS 411 [aux_sym_ppUsesBlock_token1]; ACTIONS 413 [sym_kAdd; sym_kSub];
   ACTIONS 415 [sym_kAt]; ACTIONS 417 [sym_kTrue; sym_kFalse]; ACTIONS 419 [sym_labelNumber];
   ACTIONS 3 [sym__space]; ACTIONS 5 [sym_ppDirective]; ACTIONS 3 [sym_comment];
   ACTIONS 417 [sym_ppFragmentExpr]; ACTIONS 397 [sym_ppFragmentStmt];
   ACTIONS 403 [sym__literalStringMultiline]; ACTIONS 421 [sym_identifier];
   ACTIONS 423 [sym_kSpecialize]; ACTIONS 427 [sym_kAsm]; ACTIONS 429 [sym_kBegin];
   ACTIONS 431 [sym_kCase]; ACTIONS 433 [sym_kConst]; ACTIONS 1475 [sym_kEnd];
   ACTIONS 437 [sym_kFor]; ACTIONS 439 [sym_kFunction]; ACTIONS 441 [sym_kGoto];
   ACTIONS 443 [sym_kIf]; ACTIONS 445 [sym_kInherited]; ACTIONS 417 [sym_kNil];
   ACTIONS 415 [sym_kNot]; ACTIONS 439 [sym_kProcedure]; ACTIONS 447 [sym_kRaise];
   ACTIONS 449 [sym_kRepeat]; ACTIONS 451 [sym_kString]; ACTIONS 453 [sym_kTry];
   ACTIONS 455 [sym_kVar]; ACTIONS 457 [sym_kWhile]; ACTIONS 459 [sym_kWith]].

(** State 673. *)
Definition ts_parse_table_673 : parse_row :=
  [STATE 6213 [sym_if]; STATE 6327 [sym_ifElse; sym_while; sym_repeat; sym_for; sym_foreach;
   sym_try; sym_case; sym_block; sym_asm; sym_with; sym_raise; sym_statement; sym_goto;
   sym__statement]; STATE 15961 [sym_ifTr; sym_ifElseTr; sym_whileTr; sym_repeatTr; sym_forTr;
   sym_foreachTr; sym_tryTr; sym_caseTr]; STATE 14251 [sym_blockTr]; STATE 15961 [sym_asmTr;
   sym_withTr; sym_raiseTr; sym_statementTr; sym_gotoTr; sym__statementTr];
   STATE 13915 [sym_assignment]; STATE 11785 [sym_varAssignDef]; STATE 13915 [sym_varDef;
   sym_constDef]; STATE 6166 [sym_label]; STATE 15961 [sym__statementsTr]; STATE 8019 [sym__expr;
   sym_exprConditional]; STATE 7478 [sym__ref; sym_lambda; sym_inherited; sym_exprDot;
   sym_exprDeref; sym_exprAs; sym_exprTpl; sym_exprSubscript; sym_exprCall];
   STATE 8019 [sym_exprBinary; sym_exprUnary]; STATE 7478 [sym_exprParens; sym_exprBrackets;
   sym__literal; sym_literalString]; STATE 6664 [sym__literalString; sym_literalChar];
   STATE 7478 [sym_literalNumber]; STATE 7742 [sym__literalInt; sym__literalFloat];
   STATE 1380 [sym__ppIf]; STATE 6327 [sym__ppStatementBlock];
   STATE 11840 [aux_sym_labeledStatement_repeat1]; STATE 863 [aux_sym__statementsTr_repeat1];
   STATE 6664 [aux_sym_literalString_repeat1]; ACTIONS 397 [anon_sym_SEMI];
   ACTIONS 399 [anon_sym_LBRACK]; ACTIONS 401 [anon_sym_LPAREN];
   ACTIONS 403 [aux_sym__literalString_token1]; ACTIONS 405 [anon_sym_POUND];
   ACTIONS 407 [aux_sym__literalInt_token1]; ACTIONS 409 [aux_sym__literalInt_token2;
   aux_sym__literalInt_token3]; ACTIONS 407 [aux_sym__literalFloat_token1];
   ACTIONS 411 [aux_sym_ppUsesBlock_token1]; ACTIONS 413 [sym_kAdd; sym_kSub];
   ACTIONS 415 [sym_kAt]; ACTIONS 417 [sym_kTrue; sym_kFalse]; ACTIONS 419 [sym_labelNumber];
   ACTIONS 3 [sym__space]; ACTIONS 5 [sym_ppDirective]; ACTIONS 3 [sym_comment];
   ACTIONS 417 [sym_ppFragmentExpr]; ACTIONS 397 [sym_ppFragmentStmt];
   ACTIONS 403 [sym__literalStringMultiline]; ACTIONS 421 [sym_identifier];
   ACTIONS 423 [sym_kSpecialize]; ACTIONS 427 [sym_kAsm]; ACTIONS 429 [sym_kBegin];
   ACTIONS 431 [sym_kCase]; ACTIONS 433 [sym_kConst]; ACTIONS 3723 [sym_kEnd];
   ACTIONS 437 [sym_kFor]; ACTIONS 439 [sym_kFunction]; ACTIONS 441 [sym_kGoto];
   ACTIONS 443 [sym_kIf]; ACTIONS 445 [sym_kInherited]; ACTIONS 417 [sym_kNil];
   ACTIONS 415 [sym_kNot]; ACTIONS 439 [sym_kProcedure]; ACTIONS 447 [sym_kRaise];
   ACTIONS 449 [sym_kRepeat]; ACTIONS 451 [sym_kString]; ACTIONS 453 [sym_kTry];
   ACTIONS 455 [sym_kVar]; ACTIONS 457 [sym_kWhile]; ACTIONS 459 [sym_kWith]].

(** State 674. *)
Definition ts_parse_table_674 : parse_row :=
  [STATE 6213 [sym_if]; STATE 6327 [sym_ifElse; sym_while; sym_repeat; sym_for; sym_foreach;
   sym_try; sym_case; sym_block; sym_asm; sym_with; sym_raise; sym_statement; sym_goto;
   sym__statement]; STATE 14351 [sym_ifTr; sym_ifElseTr; sym_whileTr; sym_repeatTr; sym_forTr;
   sym_foreachTr; sym_tryTr; sym_caseTr]; STATE 14251 [sym_blockTr]; STATE 14351 [sym_asmTr;
   sym_withTr; sym_raiseTr; sym_statementTr; sym_gotoTr; sym__statementTr];
   STATE 13915 [sym_assignment]; STATE 11785 [sym_varAssignDef]; STATE 13915 [sym_varDef;
   sym_constDef]; STATE 6166 [sym_label]; STATE 14351 [sym__statementsTr]; STATE 8019 [sym__expr;
   sym_exprConditional]; STATE 7478 [sym__ref; sym_lambda; sym_inherited; sym_exprDot;
   sym_exprDeref; sym_exprAs; sym_exprTpl; sym_exprSubscript; sym_exprCall];
   STATE 8019 [sym_exprBinary; sym_exprUnary]; STATE 7478 [sym_exprParens; sym_exprBrackets;
   sym__literal; sym_literalString]; STATE 6664 [sym__literalString; sym_literalChar];
   STATE 7478 [sym_literalNumber]; STATE 7742 [sym__literalInt; sym__literalFloat];
   STATE 1380 [sym__ppIf]; STATE 6327 [sym__ppStatementBlock];
   STATE 11840 [aux_sym_labeledStatement_repeat1]; STATE 863 [aux_sym__statementsTr_repeat1];
   STATE 6664 [aux_sym_literalString_repeat1]; ACTIONS 397 [anon_sym_SEMI];
   ACTIONS 399 [anon_sym_LBRACK]; ACTIONS 401 [anon_sym_LPAREN];
   ACTIONS 403 [aux_sym__literalString_token1]; ACTIONS 405 [anon_sym_POUND];
   ACTIONS 407 [aux_sym__literalInt_token1]; ACTIONS 409 [aux_sym__literalInt_token2;
   aux_sym__literalInt_token3]; ACTIONS 407 [aux_sym__literalFloat_token1];
   ACTIONS 411 [aux_sym_ppUsesBlock_token1]; ACTIONS 413 [sym_kAdd; sym_kSub];
   ACTIONS 415 [sym_kAt]; ACTIONS 417 [sym_kTrue; sym_kFalse]; ACTIONS 419 [sym_labelNumber];
   ACTIONS 3 [sym__space]; ACTIONS 5 [sym_ppDirective]; ACTIONS 3 [sym_comment];
   ACTIONS 417 [sym_ppFragmentExpr]; ACTIONS 397 [sym_ppFragmentStmt];
   ACTIONS 403 [sym__literalStringMultiline]; ACTIONS 421 [sym_identifier];
   ACTIONS 423 [sym_kSpecialize]; ACTIONS 427 [sym_kAsm]; ACTIONS 429 [sym_kBegin];
   ACTIONS 431 [sym_kCase]; ACTIONS 433 [sym_kConst]; ACTIONS 3725 [sym_kEnd];
   ACTIONS 437 [sym_kFor]; ACTIONS 439 [sym_kFunction]; ACTIONS 441 [sym_kGoto];
   ACTIONS 443 [sym_kIf]; ACTIONS 445 [sym_kInherited]; ACTIONS 417 [sym_kNil];
   ACTIONS 415 [sym_kNot]; ACTIONS 439 [sym_kProcedure]; ACTIONS 447 [sym_kRaise];
   ACTIONS 449 [sym_kRepeat]; ACTIONS 451 [sym_kString]; ACTIONS 453 [sym_kTry];
   ACTIONS 455 [sym_kVar]; ACTIONS 457 [sym_kWhile]; ACTIONS 459 [sym_kWith]].

(** State 675. *)
Definition ts_parse_table_675 : parse_row :=
  [STATE 6213 [sym_if]; STATE 6327 [sym_ifElse; sym_while; sym_repeat; sym_for; sym_foreach;
   sym_try; sym_case; sym_block; sym_asm; sym_with; sym_raise; sym_statement; sym_goto;
   sym__statement]; STATE 14130 [sym_ifTr; sym_ifElseTr; sym_whileTr; sym_repeatTr; sym_forTr;
   sym_foreachTr; sym_tryTr; sym_caseTr]; STATE 14251 [sym_blockTr]; STATE 14130 [sym_asmTr;
   sym_withTr; sym_raiseTr; sym_statementTr; sym_gotoTr; sym__statementTr];
   STATE 13915 [sym_assignment]; STATE 11785 [sym_varAssignDef]; STATE 13915 [sym_varDef;
   sym_constDef]; STATE 6166 [sym_label]; STATE 14130 [sym__statementsTr]; STATE 8019 [sym__expr;
   sym_exprConditional]; STATE 7478 [sym__ref; sym_lambda; sym_inherited; sym_exprDot;
   sym_exprDeref; sym_exprAs; sym_exprTpl; sym_exprSubscript; sym_exprCall];
   STATE 8019 [sym_exprBinary; sym_exprUnary]; STATE 7478 [sym_exprParens; sym_exprBrackets;
   sym__literal; sym_literalString]; STATE 6664 [sym__literalString; sym_literalChar];
   STATE 7478 [sym_literalNumber]; STATE 7742 [sym__literalInt; sym__literalFloat];
   STATE 1380 [sym__ppIf]; STATE 6327 [sym__ppStatementBlock];
   STATE 11840 [aux_sym_labeledStatement_repeat1]; STATE 863 [aux_sym__statementsTr_repeat1];
   STATE 6664 [aux_sym_literalString_repeat1]; ACTIONS 397 [anon_sym_SEMI];
   ACTIONS 399 [anon_sym_LBRACK]; ACTIONS 401 [anon_sym_LPAREN];
   ACTIONS 403 [aux_sym__literalString_token1]; ACTIONS 405 [anon_sym_POUND];
   ACTIONS 407 [aux_sym__literalInt_token1]; ACTIONS 409 [aux_sym__literalInt_token2;
   aux_sym__literalInt_token3]; ACTIONS 407 [aux_sym__literalFloat_token1];
   ACTIONS 411 [aux_sym_ppUsesBlock_token1]; ACTIONS 413 [sym_kAdd; sym_kSub];
   ACTIONS 415 [sym_kAt]; ACTIONS 417 [sym_kTrue; sym_kFalse]; ACTIONS 419 [sym_labelNumber];
   ACTIONS 3 [sym__space]; ACTIONS 5 [sym_ppDirective]; ACTIONS 3 [sym_comment];
   ACTIONS 417 [sym_ppFragmentExpr]; ACTIONS 397 [sym_ppFragmentStmt];
   ACTIONS 403 [sym__literalStringMultiline]; ACTIONS 421 [sym_identifier];
   ACTIONS 423 [sym_kSpecialize]; ACTIONS 427 [sym_kAsm]; ACTIONS 429 [sym_kBegin];
   ACTIONS 431 [sym_kCase]; ACTIONS 433 [sym_kConst]; ACTIONS 2437 [sym_kEnd];
   ACTIONS 437 [sym_kFor]; ACTIONS 439 [sym_kFunction]; ACTIONS 441 [sym_kGoto];
   ACTIONS 443 [sym_kIf]; ACTIONS 445 [sym_kInherited]; ACTIONS 417 [sym_kNil];
   ACTIONS 415 [sym_kNot]; ACTIONS 439 [sym_kProcedure]; ACTIONS 447 [sym_kRaise];
   ACTIONS 449 [sym_kRepeat]; ACTIONS 451 [sym_kString]; ACTIONS 453 [sym_kTry];
   ACTIONS 455 [sym_kVar]; ACTIONS 457 [sym_kWhile]; ACTIONS 459 [sym_kWith]].

(** State 676. *)
Definition ts_parse_table_676 : parse_row :=
  [STATE 1204 [sym__procAttribute]; STATE 15235 [sym_procAttribute]; STATE 817 [sym_procExternal;
   aux_sym_declVar_repeat2]; ACTIONS 3727 [anon_sym_SEMI; anon_sym_COMMA];
   ACTIONS 3729 [anon_sym_LBRACK]; ACTIONS 3732 [anon_sym_LPAREN];
   ACTIONS 3727 [aux_sym__literalString_token1; anon_sym_POUND];
   ACTIONS 3732 [aux_sym__literalInt_token1]; ACTIONS 3727 [aux_sym__literalInt_token2;
   aux_sym__literalInt_token3]; ACTIONS 3732 [aux_sym__literalFloat_token1];
   ACTIONS 3727 [aux_sym_ppUsesBlock_token1; aux_sym_ppUsesBlock_token2;
   aux_sym_ppUsesBlock_token3]; ACTIONS 3732 [sym_kAdd; sym_kSub]; ACTIONS 3727 [sym_kAt;
   sym_kTrue; sym_kFalse]; ACTIONS 3 [sym__space]; ACTIONS 5 [sym_ppDirective];
   ACTIONS 3 [sym_comment]; ACTIONS 3727 [sym_ppFragmentExpr; sym__literalStringMultiline;
   sym_identifier]; ACTIONS 3734 [sym_kDefault; sym_kNodefault]; ACTIONS 3737 [sym_kDispId];
   ACTIONS 3727 [sym_kGeneric; sym_kSpecialize; sym_kOperator]; ACTIONS 3740 [sym_kPublic];
   ACTIONS 3734 [sym_kStatic; sym_kVirtual; sym_kAbstract; sym_kDynamic; sym_kOverride;
   sym_kOverload; sym_kReintroduce; sym_kStdcall; sym_kCdecl; sym_kCppdecl; sym_kPascal;
   sym_kRegister; sym_kMwpascal]; ACTIONS 3438 [sym_kExternal]; ACTIONS 3743 [sym_kMessage];
   ACTIONS 3746 [sym_kDeprecated]; ACTIONS 3734 [sym_kExperimental; sym_kPlatform;
   sym_kUnimplemented; sym_kCvar]; ACTIONS 3749 [sym_kExport]; ACTIONS 3734 [sym_kFar; sym_kNear;
   sym_kSafecall; sym_kAssembler; sym_kNostackframe; sym_kInterrupt; sym_kNoreturn; sym_kIocheck;
   sym_kLocal; sym_kHardfloat; sym_kSoftfloat; sym_kMs_abi_default; sym_kMs_abi_cdecl;
   sym_kSaveregisters; sym_kSysv_abi_default; sym_kSysv_abi_cdecl; sym_kVectorcall; sym_kVarargs;
   sym_kWinapi]; ACTIONS 3752 [sym_kAlias]; ACTIONS 3727 [sym_kAsm; sym_kBegin; sym_kCase;
   sym_kClass; sym_kConst; sym_kConstructor; sym_kDestructor; sym_kExports; sym_kFor;
   sym_kFunction; sym_kGoto; sym_kIf; sym_kInherited]; ACTIONS 1016 [sym_kInline];
   ACTIONS 3727 [sym_kLabel; sym_kNil; sym_kNot; sym_kProcedure; sym_kProperty; sym_kRaise;
   sym_kRepeat; sym_kResourcestring; sym_kString; sym_kThreadvar; sym_kTry; sym_kType; sym_kUses;
   sym_kVar; sym_kWhile; sym_kWith]].

(** State 677. *)
Definition ts_parse_table_677 : parse_row :=
  [STATE 1204 [sym__procAttribute]; STATE 15235 [sym_procAttribute]; STATE 819 [sym_procExternal;
   aux_sym_declVar_repeat2]; ACTIONS 3755 [anon_sym_SEMI; anon_sym_COMMA];
   ACTIONS 3757 [anon_sym_LBRACK]; ACTIONS 3760 [anon_sym_LPAREN];
   ACTIONS 3755 [aux_sym__literalString_token1; anon_sym_POUND];
   ACTIONS 3760 [aux_sym__literalInt_token1]; ACTIONS 3755 [aux_sym__literalInt_token2;
   aux_sym__literalInt_token3]; ACTIONS 3760 [aux_sym__literalFloat_token1];
   ACTIONS 3755 [aux_sym_ppUsesBlock_token1; aux_sym_ppUsesBlock_token2;
   aux_sym_ppUsesBlock_token3]; ACTIONS 3760 [sym_kAdd; sym_kSub]; ACTIONS 3755 [sym_kAt;
   sym_kTrue; sym_kFalse]; ACTIONS 3 [sym__space]; ACTIONS 5 [sym_ppDirective];
   ACTIONS 3 [sym_comment]; ACTIONS 3755 [sym_ppFragmentExpr; sym__literalStringMultiline;
   sym_identifier]; ACTIONS 3762 [sym_kDefault; sym_kNodefault]; ACTIONS 3765 [sym_kDispId];
   ACTIONS 3755 [sym_kGeneric; sym_kSpecialize; sym_kOperator]; ACTIONS 3768 [sym_kPublic];
   ACTIONS 3762 [sym_kStatic; sym_kVirtual; sym_kAbstract; sym_kDynamic; sym_kOverride;
   sym_kOverload; sym_kReintroduce; sym_kStdcall; sym_kCdecl; sym_kCppdecl; sym_kPascal;
   sym_kRegister; sym_kMwpascal]; ACTIONS 3438 [sym_kExternal]; ACTIONS 3771 [sym_kMessage];
   ACTIONS 3774 [sym_kDeprecated]; ACTIONS 3762 [sym_kExperimental; sym_kPlatform;
   sym_kUnimplemented; sym_kCvar]; ACTIONS 3777 [sym_kExport]; ACTIONS 3762 [sym_kFar; sym_kNear;
   sym_kSafecall; sym_kAssembler; sym_kNostackframe; sym_kInterrupt; sym_kNoreturn; sym_kIocheck;
   sym_kLocal; sym_kHardfloat; sym_kSoftfloat; sym_kMs_abi_default; sym_kMs_abi_cdecl;
   sym_kSaveregisters; sym_kSysv_abi_default; sym_kSysv_abi_cdecl; sym_kVectorcall; sym_kVarargs;
   sym_kWinapi]; ACTIONS 3780 [sym_kAlias]; ACTIONS 3755 [sym_kAsm; sym_kBegin; sym_kCase;
   sym_kClass; sym_kConst; sym_kConstructor; sym_kDestructor; sym_kExports; sym_kFor;
   sym_kFunction; sym_kGoto; sym_kIf; sym_kInherited]; ACTIONS 1016 [sym_kInline];
   ACTIONS 3755 [sym_kLabel; sym_kNil; sym_kNot; sym_kProcedure; sym_kProperty; sym_kRaise;
   sym_kRepeat; sym_kResourcestring; sym_kString; sym_kThreadvar; sym_kTry; sym_kType; sym_kUses;
   sym_kVar; sym_kWhile; sym_kWith]].

(** State 678. *)
Definition ts_parse_table_678 : parse_row :=
  [STATE 5784 [sym_if]; STATE 5795 [sym_ifElse; sym_while; sym_repeat; sym_for; sym_foreach;
   sym_try; sym_case; sym_block; sym_asm; sym_with; sym_raise; sym_statement; sym_goto;
   sym_labeledStatement; sym__statement]; STATE 11983 [sym_ifTr; sym_ifElseTr; sym_whileTr;
   sym_repeatTr; sym_forTr; sym_foreachTr; sym_tryTr; sym_caseTr]; STATE 11959 [sym_blockTr];
   STATE 11983 [sym_asmTr; sym_withTr; sym_raiseTr; sym_statementTr; sym_gotoTr;
   sym_labeledStatementTr; sym__statementTr]; STATE 11608 [sym_assignment];
   STATE 11896 [sym_varAssignDef]; STATE 11608 [sym_varDef; sym_constDef]; STATE 859 [sym_label];
   STATE 7327 [sym__expr; sym_exprConditional]; STATE 7013 [sym__ref; sym_lambda; sym_inherited;
   sym_exprDot; sym_exprDeref; sym_exprAs; sym_exprTpl; sym_exprSubscript; sym_exprCall];
   STATE 7327 [sym_exprBinary; sym_exprUnary]; STATE 7013 [sym_exprParens; sym_exprBrackets;
   sym__literal; sym_literalString]; STATE 6066 [sym__literalString; sym_literalChar];
   STATE 7013 [sym_literalNumber]; STATE 7084 [sym__literalInt; sym__literalFloat];
   STATE 6066 [aux_sym_literalString_repeat1]; ACTIONS 3280 [anon_sym_SEMI];
   ACTIONS 609 [anon_sym_LBRACK]; ACTIONS 611 [anon_sym_LPAREN];
   ACTIONS 613 [aux_sym__literalString_token1]; ACTIONS 615 [anon_sym_POUND];
   ACTIONS 617 [aux_sym__literalInt_token1]; ACTIONS 619 [aux_sym__literalInt_token2;
   aux_sym__literalInt_token3]; ACTIONS 617 [aux_sym__literalFloat_token1];
   ACTIONS 621 [sym_kAdd; sym_kSub]; ACTIONS 623 [sym_kAt]; ACTIONS 625 [sym_kTrue; sym_kFalse];
   ACTIONS 3783 [sym_labelNumber]; ACTIONS 3 [sym__space]; ACTIONS 5 [sym_ppDirective];
   ACTIONS 3 [sym_comment]; ACTIONS 625 [sym_ppFragmentExpr];
   ACTIONS 613 [sym__literalStringMultiline]; ACTIONS 3785 [sym_identifier];
   ACTIONS 631 [sym_kSpecialize]; ACTIONS 633 [sym_kAsm]; ACTIONS 635 [sym_kBegin];
   ACTIONS 637 [sym_kCase]; ACTIONS 639 [sym_kConst]; ACTIONS 3282 [sym_kEnd; sym_kFinalization];
   ACTIONS 643 [sym_kFor]; ACTIONS 645 [sym_kFunction]; ACTIONS 647 [sym_kGoto];
   ACTIONS 649 [sym_kIf]; ACTIONS 3282 [sym_kImplementation]; ACTIONS 651 [sym_kInherited];
   ACTIONS 3282 [sym_kInitialization; sym_kInterface]; ACTIONS 625 [sym_kNil];
   ACTIONS 623 [sym_kNot]; ACTIONS 645 [sym_kProcedure]; ACTIONS 653 [sym_kRaise];
   ACTIONS 655 [sym_kRepeat]; ACTIONS 657 [sym_kString]; ACTIONS 659 [sym_kTry];
   ACTIONS 661 [sym_kVar]; ACTIONS 663 [sym_kWhile]; ACTIONS 665 [sym_kWith]].

(** State 679. *)
Definition ts_parse_table_679 : parse_row :=
  [STATE 2921 [sym__ppIf]; STATE 1214 [sym__procAttributeNoExt];
   STATE 1215 [sym__procAttributesPp]; STATE 15691 [sym_procAttribute];
   STATE 777 [aux_sym__declProc_repeat1]; ACTIONS 3787 [anon_sym_SEMI; anon_sym_COMMA];
   ACTIONS 3789 [anon_sym_LBRACK]; ACTIONS 3792 [anon_sym_LPAREN];
   ACTIONS 3787 [aux_sym__literalString_token1; anon_sym_POUND];
   ACTIONS 3792 [aux_sym__literalInt_token1]; ACTIONS 3787 [aux_sym__literalInt_token2;
   aux_sym__literalInt_token3]; ACTIONS 3792 [aux_sym__literalFloat_token1];
   ACTIONS 3794 [aux_sym_ppUsesBlock_token1]; ACTIONS 3787 [aux_sym_ppUsesBlock_token2;
   aux_sym_ppUsesBlock_token3]; ACTIONS 3792 [sym_kAdd; sym_kSub]; ACTIONS 3787 [sym_kAt;
   sym_kTrue; sym_kFalse]; ACTIONS 3 [sym__space]; ACTIONS 5 [sym_ppDirective];
   ACTIONS 3 [sym_comment]; ACTIONS 3787 [sym_ppFragmentExpr; sym__literalStringMultiline;
   sym_identifier]; ACTIONS 3797 [sym_kDefault; sym_kNodefault]; ACTIONS 3800 [sym_kDispId];
   ACTIONS 3787 [sym_kGeneric; sym_kSpecialize; sym_kOperator]; ACTIONS 3803 [sym_kPublic];
   ACTIONS 3797 [sym_kStatic; sym_kVirtual; sym_kAbstract; sym_kDynamic; sym_kOverride;
   sym_kOverload; sym_kReintroduce; sym_kStdcall; sym_kCdecl; sym_kCppdecl; sym_kPascal;
   sym_kRegister; sym_kMwpascal]; ACTIONS 3806 [sym_kMessage]; ACTIONS 3809 [sym_kDeprecated];
   ACTIONS 3797 [sym_kExperimental; sym_kPlatform; sym_kUnimplemented; sym_kCvar];
   ACTIONS 3812 [sym_kExport]; ACTIONS 3797 [sym_kFar; sym_kNear; sym_kSafecall; sym_kAssembler;
   sym_kNostackframe; sym_kInterrupt; sym_kNoreturn; sym_kIocheck; sym_kLocal; sym_kHardfloat;
   sym_kSoftfloat; sym_kMs_abi_default; sym_kMs_abi_cdecl; sym_kSaveregisters;
   sym_kSysv_abi_default; sym_kSysv_abi_cdecl; sym_kVectorcall; sym_kVarargs; sym_kWinapi];
   ACTIONS 3815 [sym_kAlias]; ACTIONS 3787 [sym_kAsm; sym_kBegin; sym_kCase; sym_kClass;
   sym_kConst; sym_kConstructor; sym_kDestructor; sym_kExports; sym_kFor; sym_kFunction;
   sym_kGoto; sym_kIf; sym_kInherited]; ACTIONS 1016 [sym_kInline]; ACTIONS 3787 [sym_kLabel;
   sym_kNil; sym_kNot; sym_kProcedure; sym_kProperty; sym_kRaise; sym_kRepeat;
   sym_kResourcestring; sym_kString; sym_kThreadvar; sym_kTry; sym_kType; sym_kUses; sym_kVar;
   sym_kWhile; sym_kWith]].

(** State 680. *)
Definition ts_parse_table_680 : parse_row :=
  [STATE 2921 [sym__ppIf]; STATE 1214 [sym__procAttributeNoExt];
   STATE 1215 [sym__procAttributesPp]; STATE 15691 [sym_procAttribute];
   STATE 810 [aux_sym__declProc_repeat1]; ACTIONS 3818 [anon_sym_SEMI; anon_sym_COMMA];
   ACTIONS 3820 [anon_sym_LBRACK]; ACTIONS 3823 [anon_sym_LPAREN];
   ACTIONS 3818 [aux_sym__literalString_token1; anon_sym_POUND];
   ACTIONS 3823 [aux_sym__literalInt_token1]; ACTIONS 3818 [aux_sym__literalInt_token2;
   aux_sym__literalInt_token3]; ACTIONS 3823 [aux_sym__literalFloat_token1];
   ACTIONS 3825 [aux_sym_ppUsesBlock_token1]; ACTIONS 3818 [aux_sym_ppUsesBlock_token2;
   aux_sym_ppUsesBlock_token3]; ACTIONS 3823 [sym_kAdd; sym_kSub]; ACTIONS 3818 [sym_kAt;
   sym_kTrue; sym_kFalse]; ACTIONS 3 [sym__space]; ACTIONS 5 [sym_ppDirective];
   ACTIONS 3 [sym_comment]; ACTIONS 3818 [sym_ppFragmentExpr; sym__literalStringMultiline;
   sym_identifier]; ACTIONS 3828 [sym_kDefault; sym_kNodefault]; ACTIONS 3831 [sym_kDispId];
   ACTIONS 3818 [sym_kGeneric; sym_kSpecialize; sym_kOperator]; ACTIONS 3834 [sym_kPublic];
   ACTIONS 3828 [sym_kStatic; sym_kVirtual; sym_kAbstract; sym_kDynamic; sym_kOverride;
   sym_kOverload; sym_kReintroduce; sym_kStdcall; sym_kCdecl; sym_kCppdecl; sym_kPascal;
   sym_kRegister; sym_kMwpascal]; ACTIONS 3837 [sym_kMessage]; ACTIONS 3840 [sym_kDeprecated];
   ACTIONS 3828 [sym_kExperimental; sym_kPlatform; sym_kUnimplemented; sym_kCvar];
   ACTIONS 3843 [sym_kExport]; ACTIONS 3828 [sym_kFar; sym_kNear; sym_kSafecall; sym_kAssembler;
   sym_kNostackframe; sym_kInterrupt; sym_kNoreturn; sym_kIocheck; sym_kLocal; sym_kHardfloat;
   sym_kSoftfloat; sym_kMs_abi_default; sym_kMs_abi_cdecl; sym_kSaveregisters;
   sym_kSysv_abi_default; sym_kSysv_abi_cdecl; sym_kVectorcall; sym_kVarargs; sym_kWinapi];
   ACTIONS 3846 [sym_kAlias]; ACTIONS 3818 [sym_kAsm; sym_kBegin; sym_kCase; sym_kClass;
   sym_kConst; sym_kConstructor; sym_kDestructor; sym_kExports; sym_kFor; sym_kFunction;
   sym_kGoto; sym_kIf; sym_kInherited]; ACTIONS 1016 [sym_kInline]; ACTIONS 3818 [sym_kLabel;
   sym_kNil; sym_kNot; sym_kProcedure; sym_kProperty; sym_kRaise; sym_kRepeat;
   sym_kResourcestring; sym_kString; sym_kThreadvar; sym_kTry; sym_kType; sym_kUses; sym_kVar;
   sym_kWhile; sym_kWith]].

(** State 681. *)
Definition ts_parse_table_681 : parse_row :=
  [STATE 2921 [sym__ppIf]; STATE 1214 [sym__procAttributeNoExt];
   STATE 1215 [sym__procAttributesPp]; STATE 15691 [sym_procAttribute];
   STATE 777 [aux_sym__declProc_repeat1]; ACTIONS 2543 [anon_sym_SEMI; anon_sym_COMMA];
   ACTIONS 3849 [anon_sym_LBRACK]; ACTIONS 2548 [anon_sym_LPAREN];
   ACTIONS 2543 [aux_sym__literalString_token1; anon_sym_POUND];
   ACTIONS 2548 [aux_sym__literalInt_token1]; ACTIONS 2543 [aux_sym__literalInt_token2;
   aux_sym__literalInt_token3]; ACTIONS 2548 [aux_sym__literalFloat_token1];
   ACTIONS 2550 [aux_sym_ppUsesBlock_token1]; ACTIONS 2543 [aux_sym_ppUsesBlock_token2;
   aux_sym_ppUsesBlock_token3]; ACTIONS 2548 [sym_kAdd; sym_kSub]; ACTIONS 2543 [sym_kAt;
   sym_kTrue; sym_kFalse]; ACTIONS 3 [sym__space]; ACTIONS 5 [sym_ppDirective];
   ACTIONS 3 [sym_comment]; ACTIONS 2543 [sym_ppFragmentExpr; sym__literalStringMultiline;
   sym_identifier]; ACTIONS 2553 [sym_kDefault; sym_kNodefault]; ACTIONS 2556 [sym_kDispId];
   ACTIONS 2543 [sym_kGeneric; sym_kSpecialize; sym_kOperator]; ACTIONS 2559 [sym_kPublic];
   ACTIONS 2553 [sym_kStatic; sym_kVirtual; sym_kAbstract; sym_kDynamic; sym_kOverride;
   sym_kOverload; sym_kReintroduce; sym_kStdcall; sym_kCdecl; sym_kCppdecl; sym_kPascal;
   sym_kRegister; sym_kMwpascal]; ACTIONS 2562 [sym_kMessage]; ACTIONS 2565 [sym_kDeprecated];
   ACTIONS 2553 [sym_kExperimental; sym_kPlatform; sym_kUnimplemented; sym_kCvar];
   ACTIONS 2568 [sym_kExport]; ACTIONS 2553 [sym_kFar; sym_kNear; sym_kSafecall; sym_kAssembler;
   sym_kNostackframe; sym_kInterrupt; sym_kNoreturn; sym_kIocheck; sym_kLocal; sym_kHardfloat;
   sym_kSoftfloat; sym_kMs_abi_default; sym_kMs_abi_cdecl; sym_kSaveregisters;
   sym_kSysv_abi_default; sym_kSysv_abi_cdecl; sym_kVectorcall; sym_kVarargs; sym_kWinapi];
   ACTIONS 2571 [sym_kAlias]; ACTIONS 2543 [sym_kAsm; sym_kBegin; sym_kCase; sym_kClass;
   sym_kConst; sym_kConstructor; sym_kDestructor; sym_kExports; sym_kFor; sym_kFunction;
   sym_kGoto; sym_kIf; sym_kInherited]; ACTIONS 1016 [sym_kInline]; ACTIONS 2543 [sym_kLabel;
   sym_kNil; sym_kNot; sym_kProcedure; sym_kProperty; sym_kRaise; sym_kRepeat;
   sym_kResourcestring; sym_kString; sym_kThreadvar; sym_kTry; sym_kType; sym_kUses; sym_kVar;
   sym_kWhile; sym_kWith]].

(** State 682. *)
Definition ts_parse_table_682 : parse_row :=
  [STATE 2921 [sym__ppIf]; STATE 1214 [sym__procAttributeNoExt];
   STATE 1215 [sym__procAttributesPp]; STATE 15691 [sym_procAttribute];
   STATE 777 [aux_sym__declProc_repeat1]; ACTIONS 3852 [anon_sym_SEMI; anon_sym_COMMA];
   ACTIONS 3854 [anon_sym_LBRACK]; ACTIONS 3857 [anon_sym_LPAREN];
   ACTIONS 3852 [aux_sym__literalString_token1; anon_sym_POUND];
   ACTIONS 3857 [aux_sym__literalInt_token1]; ACTIONS 3852 [aux_sym__literalInt_token2;
   aux_sym__literalInt_token3]; ACTIONS 3857 [aux_sym__literalFloat_token1];
   ACTIONS 3859 [aux_sym_ppUsesBlock_token1]; ACTIONS 3852 [aux_sym_ppUsesBlock_token2;
   aux_sym_ppUsesBlock_token3]; ACTIONS 3857 [sym_kAdd; sym_kSub]; ACTIONS 3852 [sym_kAt;
   sym_kTrue; sym_kFalse]; ACTIONS 3 [sym__space]; ACTIONS 5 [sym_ppDirective];
   ACTIONS 3 [sym_comment]; ACTIONS 3852 [sym_ppFragmentExpr; sym__literalStringMultiline;
   sym_identifier]; ACTIONS 3862 [sym_kDefault; sym_kNodefault]; ACTIONS 3865 [sym_kDispId];
   ACTIONS 3852 [sym_kGeneric; sym_kSpecialize; sym_kOperator]; ACTIONS 3868 [sym_kPublic];
   ACTIONS 3862 [sym_kStatic; sym_kVirtual; sym_kAbstract; sym_kDynamic; sym_kOverride;
   sym_kOverload; sym_kReintroduce; sym_kStdcall; sym_kCdecl; sym_kCppdecl; sym_kPascal;
   sym_kRegister; sym_kMwpascal]; ACTIONS 3871 [sym_kMessage]; ACTIONS 3874 [sym_kDeprecated];
   ACTIONS 3862 [sym_kExperimental; sym_kPlatform; sym_kUnimplemented; sym_kCvar];
   ACTIONS 3877 [sym_kExport]; ACTIONS 3862 [sym_kFar; sym_kNear; sym_kSafecall; sym_kAssembler;
   sym_kNostackframe; sym_kInterrupt; sym_kNoreturn; sym_kIocheck; sym_kLocal; sym_kHardfloat;
   sym_kSoftfloat; sym_kMs_abi_default; sym_kMs_abi_cdecl; sym_kSaveregisters;
   sym_kSysv_abi_default; sym_kSysv_abi_cdecl; sym_kVectorcall; sym_kVarargs; sym_kWinapi];
   ACTIONS 3880 [sym_kAlias]; ACTIONS 3852 [sym_kAsm; sym_kBegin; sym_kCase; sym_kClass;
   sym_kConst; sym_kConstructor; sym_kDestructor; sym_kExports; sym_kFor; sym_kFunction;
   sym_kGoto; sym_kIf; sym_kInherited]; ACTIONS 1016 [sym_kInline]; ACTIONS 3852 [sym_kLabel;
   sym_kNil; sym_kNot; sym_kProcedure; sym_kProperty; sym_kRaise; sym_kRepeat;
   sym_kResourcestring; sym_kString; sym_kThreadvar; sym_kTry; sym_kType; sym_kUses; sym_kVar;
   sym_kWhile; sym_kWith]].

(** State 683. *)
Definition ts_parse_table_683 : parse_row :=
  [STATE 1204 [sym__procAttribute]; STATE 15235 [sym_procAttribute]; STATE 817 [sym_procExternal;
   aux_sym_declVar_repeat2]; ACTIONS 3883 [anon_sym_SEMI; anon_sym_COMMA];
   ACTIONS 3885 [anon_sym_LBRACK]; ACTIONS 3888 [anon_sym_LPAREN];
   ACTIONS 3883 [aux_sym__literalString_token1; anon_sym_POUND];
   ACTIONS 3888 [aux_sym__literalInt_token1]; ACTIONS 3883 [aux_sym__literalInt_token2;
   aux_sym__literalInt_token3]; ACTIONS 3888 [aux_sym__literalFloat_token1];
   ACTIONS 3883 [aux_sym_ppUsesBlock_token1; aux_sym_ppUsesBlock_token2;
   aux_sym_ppUsesBlock_token3]; ACTIONS 3888 [sym_kAdd; sym_kSub]; ACTIONS 3883 [sym_kAt;
   sym_kTrue; sym_kFalse]; ACTIONS 3 [sym__space]; ACTIONS 5 [sym_ppDirective];
   ACTIONS 3 [sym_comment]; ACTIONS 3883 [sym_ppFragmentExpr; sym__literalStringMultiline;
   sym_identifier]; ACTIONS 3890 [sym_kDefault; sym_kNodefault]; ACTIONS 3893 [sym_kDispId];
   ACTIONS 3883 [sym_kGeneric; sym_kSpecialize; sym_kOperator]; ACTIONS 3896 [sym_kPublic];
   ACTIONS 3890 [sym_kStatic; sym_kVirtual; sym_kAbstract; sym_kDynamic; sym_kOverride;
   sym_kOverload; sym_kReintroduce; sym_kStdcall; sym_kCdecl; sym_kCppdecl; sym_kPascal;
   sym_kRegister; sym_kMwpascal]; ACTIONS 3438 [sym_kExternal]; ACTIONS 3899 [sym_kMessage];
   ACTIONS 3902 [sym_kDeprecated]; ACTIONS 3890 [sym_kExperimental; sym_kPlatform;
   sym_kUnimplemented; sym_kCvar]; ACTIONS 3905 [sym_kExport]; ACTIONS 3890 [sym_kFar; sym_kNear;
   sym_kSafecall; sym_kAssembler; sym_kNostackframe; sym_kInterrupt; sym_kNoreturn; sym_kIocheck;
   sym_kLocal; sym_kHardfloat; sym_kSoftfloat; sym_kMs_abi_default; sym_kMs_abi_cdecl;
   sym_kSaveregisters; sym_kSysv_abi_default; sym_kSysv_abi_cdecl; sym_kVectorcall; sym_kVarargs;
   sym_kWinapi]; ACTIONS 3908 [sym_kAlias]; ACTIONS 3883 [sym_kAsm; sym_kBegin; sym_kCase;
   sym_kClass; sym_kConst; sym_kConstructor; sym_kDestructor; sym_kExports; sym_kFor;
   sym_kFunction; sym_kGoto; sym_kIf; sym_kInherited]; ACTIONS 1016 [sym_kInline];
   ACTIONS 3883 [sym_kLabel; sym_kNil; sym_kNot; sym_kProcedure; sym_kProperty; sym_kRaise;
   sym_kRepeat; sym_kResourcestring; sym_kString; sym_kThreadvar; sym_kTry; sym_kType; sym_kUses;
   sym_kVar; sym_kWhile; sym_kWith]].

(** State 684. *)
Definition ts_parse_table_684 : parse_row :=
  [STATE 2921 [sym__ppIf]; STATE 1214 [sym__procAttributeNoExt];
   STATE 1215 [sym__procAttributesPp]; STATE 15691 [sym_procAttribute];
   STATE 768 [aux_sym__declProc_repeat1]; ACTIONS 3911 [anon_sym_SEMI; anon_sym_COMMA];
   ACTIONS 3913 [anon_sym_LBRACK]; ACTIONS 3916 [anon_sym_LPAREN];
   ACTIONS 3911 [aux_sym__literalString_token1; anon_sym_POUND];
   ACTIONS 3916 [aux_sym__literalInt_token1]; ACTIONS 3911 [aux_sym__literalInt_token2;
   aux_sym__literalInt_token3]; ACTIONS 3916 [aux_sym__literalFloat_token1];
   ACTIONS 3918 [aux_sym_ppUsesBlock_token1]; ACTIONS 3911 [aux_sym_ppUsesBlock_token2;
   aux_sym_ppUsesBlock_token3]; ACTIONS 3916 [sym_kAdd; sym_kSub]; ACTIONS 3911 [sym_kAt;
   sym_kTrue; sym_kFalse]; ACTIONS 3 [sym__space]; ACTIONS 5 [sym_ppDirective];
   ACTIONS 3 [sym_comment]; ACTIONS 3911 [sym_ppFragmentExpr; sym__literalStringMultiline;
   sym_identifier]; ACTIONS 3921 [sym_kDefault; sym_kNodefault]; ACTIONS 3924 [sym_kDispId];
   ACTIONS 3911 [sym_kGeneric; sym_kSpecialize; sym_kOperator]; ACTIONS 3927 [sym_kPublic];
   ACTIONS 3921 [sym_kStatic; sym_kVirtual; sym_kAbstract; sym_kDynamic; sym_kOverride;
   sym_kOverload; sym_kReintroduce; sym_kStdcall; sym_kCdecl; sym_kCppdecl; sym_kPascal;
   sym_kRegister; sym_kMwpascal]; ACTIONS 3930 [sym_kMessage]; ACTIONS 3933 [sym_kDeprecated];
   ACTIONS 3921 [sym_kExperimental; sym_kPlatform; sym_kUnimplemented; sym_kCvar];
   ACTIONS 3936 [sym_kExport]; ACTIONS 3921 [sym_kFar; sym_kNear; sym_kSafecall; sym_kAssembler;
   sym_kNostackframe; sym_kInterrupt; sym_kNoreturn; sym_kIocheck; sym_kLocal; sym_kHardfloat;
   sym_kSoftfloat; sym_kMs_abi_default; sym_kMs_abi_cdecl; sym_kSaveregisters;
   sym_kSysv_abi_default; sym_kSysv_abi_cdecl; sym_kVectorcall; sym_kVarargs; sym_kWinapi];
   ACTIONS 3939 [sym_kAlias]; ACTIONS 3911 [sym_kAsm; sym_kBegin; sym_kCase; sym_kClass;
   sym_kConst; sym_kConstructor; sym_kDestructor; sym_kExports; sym_kFor; sym_kFunction;
   sym_kGoto; sym_kIf; sym_kInherited]; ACTIONS 1016 [sym_kInline]; ACTIONS 3911 [sym_kLabel;
   sym_kNil; sym_kNot; sym_kProcedure; sym_kProperty; sym_kRaise; sym_kRepeat;
   sym_kResourcestring; sym_kString; sym_kThreadvar; sym_kTry; sym_kType; sym_kUses; sym_kVar;
   sym_kWhile; sym_kWith]].

(** State 685. *)
Definition ts_parse_table_685 : parse_row :=
  [STATE 1204 [sym__procAttribute]; STATE 15235 [sym_procAttribute]; STATE 817 [sym_procExternal;
   aux_sym_declVar_repeat2]; ACTIONS 3942 [anon_sym_SEMI; anon_sym_COMMA];
   ACTIONS 3944 [anon_sym_LBRACK]; ACTIONS 3947 [anon_sym_LPAREN];
   ACTIONS 3942 [aux_sym__literalString_token1; anon_sym_POUND];
   ACTIONS 3947 [aux_sym__literalInt_token1]; ACTIONS 3942 [aux_sym__literalInt_token2;
   aux_sym__literalInt_token3]; ACTIONS 3947 [aux_sym__literalFloat_token1];
   ACTIONS 3942 [aux_sym_ppUsesBlock_token1; aux_sym_ppUsesBlock_token2;
   aux_sym_ppUsesBlock_token3]; ACTIONS 3947 [sym_kAdd; sym_kSub]; ACTIONS 3942 [sym_kAt;
   sym_kTrue; sym_kFalse]; ACTIONS 3 [sym__space]; ACTIONS 5 [sym_ppDirective];
   ACTIONS 3 [sym_comment]; ACTIONS 3942 [sym_ppFragmentExpr; sym__literalStringMultiline;
   sym_identifier]; ACTIONS 3949 [sym_kDefault; sym_kNodefault]; ACTIONS 3952 [sym_kDispId];
   ACTIONS 3942 [sym_kGeneric; sym_kSpecialize; sym_kOperator]; ACTIONS 3955 [sym_kPublic];
   ACTIONS 3949 [sym_kStatic; sym_kVirtual; sym_kAbstract; sym_kDynamic; sym_kOverride;
   sym_kOverload; sym_kReintroduce; sym_kStdcall; sym_kCdecl; sym_kCppdecl; sym_kPascal;
   sym_kRegister; sym_kMwpascal]; ACTIONS 3438 [sym_kExternal]; ACTIONS 3958 [sym_kMessage];
   ACTIONS 3961 [sym_kDeprecated]; ACTIONS 3949 [sym_kExperimental; sym_kPlatform;
   sym_kUnimplemented; sym_kCvar]; ACTIONS 3964 [sym_kExport]; ACTIONS 3949 [sym_kFar; sym_kNear;
   sym_kSafecall; sym_kAssembler; sym_kNostackframe; sym_kInterrupt; sym_kNoreturn; sym_kIocheck;
   sym_kLocal; sym_kHardfloat; sym_kSoftfloat; sym_kMs_abi_default; sym_kMs_abi_cdecl;
   sym_kSaveregisters; sym_kSysv_abi_default; sym_kSysv_abi_cdecl; sym_kVectorcall; sym_kVarargs;
   sym_kWinapi]; ACTIONS 3967 [sym_kAlias]; ACTIONS 3942 [sym_kAsm; sym_kBegin; sym_kCase;
   sym_kClass; sym_kConst; sym_kConstructor; sym_kDestructor; sym_kExports; sym_kFor;
   sym_kFunction; sym_kGoto; sym_kIf; sym_kInherited]; ACTIONS 1016 [sym_kInline];
   ACTIONS 3942 [sym_kLabel; sym_kNil; sym_kNot; sym_kProcedure; sym_kProperty; sym_kRaise;
   sym_kRepeat; sym_kResourcestring; sym_kString; sym_kThreadvar; sym_kTry; sym_kType; sym_kUses;
   sym_kVar; sym_kWhile; sym_kWith]].

(** State 686. *)
Definition ts_parse_table_686 : parse_row :=
  [STATE 1204 [sym__procAttribute]; STATE 15235 [sym_procAttribute]; STATE 724 [sym_procExternal;
   aux_sym_declVar_repeat2]; ACTIONS 3970 [anon_sym_SEMI; anon_sym_COMMA];
   ACTIONS 3972 [anon_sym_LBRACK]; ACTIONS 3975 [anon_sym_LPAREN];
   ACTIONS 3970 [aux_sym__literalString_token1; anon_sym_POUND];
   ACTIONS 3975 [aux_sym__literalInt_token1]; ACTIONS 3970 [aux_sym__literalInt_token2;
   aux_sym__literalInt_token3]; ACTIONS 3975 [aux_sym__literalFloat_token1];
   ACTIONS 3970 [aux_sym_ppUsesBlock_token1; aux_sym_ppUsesBlock_token2;
   aux_sym_ppUsesBlock_token3]; ACTIONS 3975 [sym_kAdd; sym_kSub]; ACTIONS 3970 [sym_kAt;
   sym_kTrue; sym_kFalse]; ACTIONS 3 [sym__space]; ACTIONS 5 [sym_ppDirective];
   ACTIONS 3 [sym_comment]; ACTIONS 3970 [sym_ppFragmentExpr; sym__literalStringMultiline;
   sym_identifier]; ACTIONS 3977 [sym_kDefault; sym_kNodefault]; ACTIONS 3980 [sym_kDispId];
   ACTIONS 3970 [sym_kGeneric; sym_kSpecialize; sym_kOperator]; ACTIONS 3983 [sym_kPublic];
   ACTIONS 3977 [sym_kStatic; sym_kVirtual; sym_kAbstract; sym_kDynamic; sym_kOverride;
   sym_kOverload; sym_kReintroduce; sym_kStdcall; sym_kCdecl; sym_kCppdecl; sym_kPascal;
   sym_kRegister; sym_kMwpascal]; ACTIONS 3438 [sym_kExternal]; ACTIONS 3986 [sym_kMessage];
   ACTIONS 3989 [sym_kDeprecated]; ACTIONS 3977 [sym_kExperimental; sym_kPlatform;
   sym_kUnimplemented; sym_kCvar]; ACTIONS 3992 [sym_kExport]; ACTIONS 3977 [sym_kFar; sym_kNear;
   sym_kSafecall; sym_kAssembler; sym_kNostackframe; sym_kInterrupt; sym_kNoreturn; sym_kIocheck;
   sym_kLocal; sym_kHardfloat; sym_kSoftfloat; sym_kMs_abi_default; sym_kMs_abi_cdecl;
   sym_kSaveregisters; sym_kSysv_abi_default; sym_kSysv_abi_cdecl; sym_kVectorcall; sym_kVarargs;
   sym_kWinapi]; ACTIONS 3995 [sym_kAlias]; ACTIONS 3970 [sym_kAsm; sym_kBegin; sym_kCase;
   sym_kClass; sym_kConst; sym_kConstructor; sym_kDestructor; sym_kExports; sym_kFor;
   sym_kFunction; sym_kGoto; sym_kIf; sym_kInherited]; ACTIONS 1016 [sym_kInline];
   ACTIONS 3970 [sym_kLabel; sym_kNil; sym_kNot; sym_kProcedure; sym_kProperty; sym_kRaise;
   sym_kRepeat; sym_kResourcestring; sym_kString; sym_kThreadvar; sym_kTry; sym_kType; sym_kUses;
   sym_kVar; sym_kWhile; sym_kWith]].

(** State 687. *)
Definition ts_parse_table_687 : parse_row :=
  [STATE 2921 [sym__ppIf]; STATE 1214 [sym__procAttributeNoExt];
   STATE 1215 [sym__procAttributesPp]; STATE 15691 [sym_procAttribute];
   STATE 777 [aux_sym__declProc_repeat1]; ACTIONS 3998 [anon_sym_SEMI; anon_sym_COMMA];
   ACTIONS 4000 [anon_sym_LBRACK]; ACTIONS 4003 [anon_sym_LPAREN];
   ACTIONS 3998 [aux_sym__literalString_token1; anon_sym_POUND];
   ACTIONS 4003 [aux_sym__literalInt_token1]; ACTIONS 3998 [aux_sym__literalInt_token2;
   aux_sym__literalInt_token3]; ACTIONS 4003 [aux_sym__literalFloat_token1];
   ACTIONS 4005 [aux_sym_ppUsesBlock_token1]; ACTIONS 3998 [aux_sym_ppUsesBlock_token2;
   aux_sym_ppUsesBlock_token3]; ACTIONS 4003 [sym_kAdd; sym_kSub]; ACTIONS 3998 [sym_kAt;
   sym_kTrue; sym_kFalse]; ACTIONS 3 [sym__space]; ACTIONS 5 [sym_ppDirective];
   ACTIONS 3 [sym_comment]; ACTIONS 3998 [sym_ppFragmentExpr; sym__literalStringMultiline;
   sym_identifier]; ACTIONS 4008 [sym_kDefault; sym_kNodefault]; ACTIONS 4011 [sym_kDispId];
   ACTIONS 3998 [sym_kGeneric; sym_kSpecialize; sym_kOperator]; ACTIONS 4014 [sym_kPublic];
   ACTIONS 4008 [sym_kStatic; sym_kVirtual; sym_kAbstract; sym_kDynamic; sym_kOverride;
   sym_kOverload; sym_kReintroduce; sym_kStdcall; sym_kCdecl; sym_kCppdecl; sym_kPascal;
   sym_kRegister; sym_kMwpascal]; ACTIONS 4017 [sym_kMessage]; ACTIONS 4020 [sym_kDeprecated];
   ACTIONS 4008 [sym_kExperimental; sym_kPlatform; sym_kUnimplemented; sym_kCvar];
   ACTIONS 4023 [sym_kExport]; ACTIONS 4008 [sym_kFar; sym_kNear; sym_kSafecall; sym_kAssembler;
   sym_kNostackframe; sym_kInterrupt; sym_kNoreturn; sym_kIocheck; sym_kLocal; sym_kHardfloat;
   sym_kSoftfloat; sym_kMs_abi_default; sym_kMs_abi_cdecl; sym_kSaveregisters;
   sym_kSysv_abi_default; sym_kSysv_abi_cdecl; sym_kVectorcall; sym_kVarargs; sym_kWinapi];
   ACTIONS 4026 [sym_kAlias]; ACTIONS 3998 [sym_kAsm; sym_kBegin; sym_kCase; sym_kClass;
   sym_kConst; sym_kConstructor; sym_kDestructor; sym_kExports; sym_kFor; sym_kFunction;
   sym_kGoto; sym_kIf; sym_kInherited]; ACTIONS 1016 [sym_kInline]; ACTIONS 3998 [sym_kLabel;
   sym_kNil; sym_kNot; sym_kProcedure; sym_kProperty; sym_kRaise; sym_kRepeat;
   sym_kResourcestring; sym_kString; sym_kThreadvar; sym_kTry; sym_kType; sym_kUses; sym_kVar;
   sym_kWhile; sym_kWith]].

(** State 688. *)
Definition ts_parse_table_688 : parse_row :=
  [STATE 1204 [sym__procAttribute]; STATE 15235 [sym_procAttribute]; STATE 826 [sym_procExternal;
   aux_sym_declVar_repeat2]; ACTIONS 4029 [anon_sym_SEMI; anon_sym_COMMA];
   ACTIONS 4031 [anon_sym_LBRACK]; ACTIONS 4034 [anon_sym_LPAREN];
   ACTIONS 4029 [aux_sym__literalString_token1; anon_sym_POUND];
   ACTIONS 4034 [aux_sym__literalInt_token1]; ACTIONS 4029 [aux_sym__literalInt_token2;
   aux_sym__literalInt_token3]; ACTIONS 4034 [aux_sym__literalFloat_token1];
   ACTIONS 4029 [aux_sym_ppUsesBlock_token1; aux_sym_ppUsesBlock_token2;
   aux_sym_ppUsesBlock_token3]; ACTIONS 4034 [sym_kAdd; sym_kSub]; ACTIONS 4029 [sym_kAt;
   sym_kTrue; sym_kFalse]; ACTIONS 3 [sym__space]; ACTIONS 5 [sym_ppDirective];
   ACTIONS 3 [sym_comment]; ACTIONS 4029 [sym_ppFragmentExpr; sym__literalStringMultiline;
   sym_identifier]; ACTIONS 4036 [sym_kDefault; sym_kNodefault]; ACTIONS 4039 [sym_kDispId];
   ACTIONS 4029 [sym_kGeneric; sym_kSpecialize; sym_kOperator]; ACTIONS 4042 [sym_kPublic];
   ACTIONS 4036 [sym_kStatic; sym_kVirtual; sym_kAbstract; sym_kDynamic; sym_kOverride;
   sym_kOverload; sym_kReintroduce; sym_kStdcall; sym_kCdecl; sym_kCppdecl; sym_kPascal;
   sym_kRegister; sym_kMwpascal]; ACTIONS 3438 [sym_kExternal]; ACTIONS 4045 [sym_kMessage];
   ACTIONS 4048 [sym_kDeprecated]; ACTIONS 4036 [sym_kExperimental; sym_kPlatform;
   sym_kUnimplemented; sym_kCvar]; ACTIONS 4051 [sym_kExport]; ACTIONS 4036 [sym_kFar; sym_kNear;
   sym_kSafecall; sym_kAssembler; sym_kNostackframe; sym_kInterrupt; sym_kNoreturn; sym_kIocheck;
   sym_kLocal; sym_kHardfloat; sym_kSoftfloat; sym_kMs_abi_default; sym_kMs_abi_cdecl;
   sym_kSaveregisters; sym_kSysv_abi_default; sym_kSysv_abi_cdecl; sym_kVectorcall; sym_kVarargs;
   sym_kWinapi]; ACTIONS 4054 [sym_kAlias]; ACTIONS 4029 [sym_kAsm; sym_kBegin; sym_kCase;
   sym_kClass; sym_kConst; sym_kConstructor; sym_kDestructor; sym_kExports; sym_kFor;
   sym_kFunction; sym_kGoto; sym_kIf; sym_kInherited]; ACTIONS 1016 [sym_kInline];
   ACTIONS 4029 [sym_kLabel; sym_kNil; sym_kNot; sym_kProcedure; sym_kProperty; sym_kRaise;
   sym_kRepeat; sym_kResourcestring; sym_kString; sym_kThreadvar; sym_kTry; sym_kType; sym_kUses;
   sym_kVar; sym_kWhile; sym_kWith]].

(** State 689. *)
Definition ts_parse_table_689 : parse_row :=
  [STATE 5784 [sym_if]; STATE 5809 [sym_ifElse; sym_while; sym_repeat; sym_for; sym_foreach;
   sym_try; sym_case; sym_block; sym_asm; sym_with; sym_raise; sym_statement; sym_goto];
   STATE 5797 [sym_labeledStatement]; STATE 5809 [sym__statement]; STATE 11823 [sym_ifTr;
   sym_ifElseTr; sym_whileTr; sym_repeatTr; sym_forTr; sym_foreachTr; sym_tryTr; sym_caseTr];
   STATE 11959 [sym_blockTr]; STATE 11823 [sym_asmTr; sym_withTr; sym_raiseTr; sym_statementTr;
   sym_gotoTr]; STATE 11806 [sym_labeledStatementTr]; STATE 11823 [sym__statementTr];
   STATE 11608 [sym_assignment]; STATE 11896 [sym_varAssignDef]; STATE 11608 [sym_varDef;
   sym_constDef]; STATE 859 [sym_label]; STATE 7327 [sym__expr; sym_exprConditional];
   STATE 7013 [sym__ref; sym_lambda; sym_inherited; sym_exprDot; sym_exprDeref; sym_exprAs;
   sym_exprTpl; sym_exprSubscript; sym_exprCall]; STATE 7327 [sym_exprBinary; sym_exprUnary];
   STATE 7013 [sym_exprParens; sym_exprBrackets; sym__literal; sym_literalString];
   STATE 6066 [sym__literalString; sym_literalChar]; STATE 7013 [sym_literalNumber];
   STATE 7084 [sym__literalInt; sym__literalFloat]; STATE 6066 [aux_sym_literalString_repeat1];
   ACTIONS 3284 [anon_sym_SEMI]; ACTIONS 609 [anon_sym_LBRACK]; ACTIONS 611 [anon_sym_LPAREN];
   ACTIONS 613 [aux_sym__literalString_token1]; ACTIONS 615 [anon_sym_POUND];
   ACTIONS 617 [aux_sym__literalInt_token1]; ACTIONS 619 [aux_sym__literalInt_token2;
   aux_sym__literalInt_token3]; ACTIONS 617 [aux_sym__literalFloat_token1];
   ACTIONS 621 [sym_kAdd; sym_kSub]; ACTIONS 623 [sym_kAt]; ACTIONS 625 [sym_kTrue; sym_kFalse];
   ACTIONS 3783 [sym_labelNumber]; ACTIONS 3 [sym__space]; ACTIONS 5 [sym_ppDirective];
   ACTIONS 3 [sym_comment]; ACTIONS 625 [sym_ppFragmentExpr];
   ACTIONS 613 [sym__literalStringMultiline]; ACTIONS 3785 [sym_identifier];
   ACTIONS 631 [sym_kSpecialize]; ACTIONS 633 [sym_kAsm]; ACTIONS 635 [sym_kBegin];
   ACTIONS 637 [sym_kCase]; ACTIONS 639 [sym_kConst]; ACTIONS 3286 [sym_kEnd; sym_kFinalization];
   ACTIONS 643 [sym_kFor]; ACTIONS 645 [sym_kFunction]; ACTIONS 647 [sym_kGoto];
   ACTIONS 649 [sym_kIf]; ACTIONS 3286 [sym_kImplementation]; ACTIONS 651 [sym_kInherited];
   ACTIONS 3286 [sym_kInitialization; sym_kInterface]; ACTIONS 625 [sym_kNil];
   ACTIONS 623 [sym_kNot]; ACTIONS 645 [sym_kProcedure]; ACTIONS 653 [sym_kRaise];
   ACTIONS 655 [sym_kRepeat]; ACTIONS 657 [sym_kString]; ACTIONS 659 [sym_kTry];
   ACTIONS 661 [sym_kVar]; ACTIONS 663 [sym_kWhile]; ACTIONS 665 [sym_kWith]].

(** State 690. *)
Definition ts_parse_table_690 : parse_row :=
  [STATE 1204 [sym__procAttribute]; STATE 15235 [sym_procAttribute]; STATE 817 [sym_procExternal;
   aux_sym_declVar_repeat2]; ACTIONS 4057 [anon_sym_SEMI; anon_sym_COMMA];
   ACTIONS 4059 [anon_sym_LBRACK]; ACTIONS 4062 [anon_sym_LPAREN];
   ACTIONS 4057 [aux_sym__literalString_token1; anon_sym_POUND];
   ACTIONS 4062 [aux_sym__literalInt_token1]; ACTIONS 4057 [aux_sym__literalInt_token2;
   aux_sym__literalInt_token3]; ACTIONS 4062 [aux_sym__literalFloat_token1];
   ACTIONS 4057 [aux_sym_ppUsesBlock_token1; aux_sym_ppUsesBlock_token2;
   aux_sym_ppUsesBlock_token3]; ACTIONS 4062 [sym_kAdd; sym_kSub]; ACTIONS 4057 [sym_kAt;
   sym_kTrue; sym_kFalse]; ACTIONS 3 [sym__space]; ACTIONS 5 [sym_ppDirective];
   ACTIONS 3 [sym_comment]; ACTIONS 4057 [sym_ppFragmentExpr; sym__literalStringMultiline;
   sym_identifier]; ACTIONS 4064 [sym_kDefault; sym_kNodefault]; ACTIONS 4067 [sym_kDispId];
   ACTIONS 4057 [sym_kGeneric; sym_kSpecialize; sym_kOperator]; ACTIONS 4070 [sym_kPublic];
   ACTIONS 4064 [sym_kStatic; sym_kVirtual; sym_kAbstract; sym_kDynamic; sym_kOverride;
   sym_kOverload; sym_kReintroduce; sym_kStdcall; sym_kCdecl; sym_kCppdecl; sym_kPascal;
   sym_kRegister; sym_kMwpascal]; ACTIONS 3438 [sym_kExternal]; ACTIONS 4073 [sym_kMessage];
   ACTIONS 4076 [sym_kDeprecated]; ACTIONS 4064 [sym_kExperimental; sym_kPlatform;
   sym_kUnimplemented; sym_kCvar]; ACTIONS 4079 [sym_kExport]; ACTIONS 4064 [sym_kFar; sym_kNear;
   sym_kSafecall; sym_kAssembler; sym_kNostackframe; sym_kInterrupt; sym_kNoreturn; sym_kIocheck;
   sym_kLocal; sym_kHardfloat; sym_kSoftfloat; sym_kMs_abi_default; sym_kMs_abi_cdecl;
   sym_kSaveregisters; sym_kSysv_abi_default; sym_kSysv_abi_cdecl; sym_kVectorcall; sym_kVarargs;
   sym_kWinapi]; ACTIONS 4082 [sym_kAlias]; ACTIONS 4057 [sym_kAsm; sym_kBegin; sym_kCase;
   sym_kClass; sym_kConst; sym_kConstructor; sym_kDestructor; sym_kExports; sym_kFor;
   sym_kFunction; sym_kGoto; sym_kIf; sym_kInherited]; ACTIONS 1016 [sym_kInline];
   ACTIONS 4057 [sym_kLabel; sym_kNil; sym_kNot; sym_kProcedure; sym_kProperty; sym_kRaise;
   sym_kRepeat; sym_kResourcestring; sym_kString; sym_kThreadvar; sym_kTry; sym_kType; sym_kUses;
   sym_kVar; sym_kWhile; sym_kWith]].

(** State 691. *)
Definition ts_parse_table_691 : parse_row :=
  [STATE 1204 [sym__procAttribute]; STATE 15235 [sym_procAttribute]; STATE 676 [sym_procExternal;
   aux_sym_declVar_repeat2]; ACTIONS 4085 [anon_sym_SEMI; anon_sym_COMMA];
   ACTIONS 4087 [anon_sym_LBRACK]; ACTIONS 4090 [anon_sym_LPAREN];
   ACTIONS 4085 [aux_sym__literalString_token1; anon_sym_POUND];
   ACTIONS 4090 [aux_sym__literalInt_token1]; ACTIONS 4085 [aux_sym__literalInt_token2;
   aux_sym__literalInt_token3]; ACTIONS 4090 [aux_sym__literalFloat_token1];
   ACTIONS 4085 [aux_sym_ppUsesBlock_token1; aux_sym_ppUsesBlock_token2;
   aux_sym_ppUsesBlock_token3]; ACTIONS 4090 [sym_kAdd; sym_kSub]; ACTIONS 4085 [sym_kAt;
   sym_kTrue; sym_kFalse]; ACTIONS 3 [sym__space]; ACTIONS 5 [sym_ppDirective];
   ACTIONS 3 [sym_comment]; ACTIONS 4085 [sym_ppFragmentExpr; sym__literalStringMultiline;
   sym_identifier]; ACTIONS 4092 [sym_kDefault; sym_kNodefault]; ACTIONS 4095 [sym_kDispId];
   ACTIONS 4085 [sym_kGeneric; sym_kSpecialize; sym_kOperator]; ACTIONS 4098 [sym_kPublic];
   ACTIONS 4092 [sym_kStatic; sym_kVirtual; sym_kAbstract; sym_kDynamic; sym_kOverride;
   sym_kOverload; sym_kReintroduce; sym_kStdcall; sym_kCdecl; sym_kCppdecl; sym_kPascal;
   sym_kRegister; sym_kMwpascal]; ACTIONS 3438 [sym_kExternal]; ACTIONS 4101 [sym_kMessage];
   ACTIONS 4104 [sym_kDeprecated]; ACTIONS 4092 [sym_kExperimental; sym_kPlatform;
   sym_kUnimplemented; sym_kCvar]; ACTIONS 4107 [sym_kExport]; ACTIONS 4092 [sym_kFar; sym_kNear;
   sym_kSafecall; sym_kAssembler; sym_kNostackframe; sym_kInterrupt; sym_kNoreturn; sym_kIocheck;
   sym_kLocal; sym_kHardfloat; sym_kSoftfloat; sym_kMs_abi_default; sym_kMs_abi_cdecl;
   sym_kSaveregisters; sym_kSysv_abi_default; sym_kSysv_abi_cdecl; sym_kVectorcall; sym_kVarargs;
   sym_kWinapi]; ACTIONS 4110 [sym_kAlias]; ACTIONS 4085 [sym_kAsm; sym_kBegin; sym_kCase;
   sym_kClass; sym_kConst; sym_kConstructor; sym_kDestructor; sym_kExports; sym_kFor;
   sym_kFunction; sym_kGoto; sym_kIf; sym_kInherited]; ACTIONS 1016 [sym_kInline];
   ACTIONS 4085 [sym_kLabel; sym_kNil; sym_kNot; sym_kProcedure; sym_kProperty; sym_kRaise;
   sym_kRepeat; sym_kResourcestring; sym_kString; sym_kThreadvar; sym_kTry; sym_kType; sym_kUses;
   sym_kVar; sym_kWhile; sym_kWith]].

(** State 692. *)
Definition ts_parse_table_692 : parse_row :=
  [STATE 5784 [sym_if]; STATE 5696 [sym_ifElse; sym_while; sym_repeat; sym_for; sym_foreach;
   sym_try; sym_case; sym_block; sym_asm; sym_with; sym_raise; sym_statement; sym_goto;
   sym_labeledStatement; sym__statement]; STATE 11778 [sym_ifTr; sym_ifElseTr; sym_whileTr;
   sym_repeatTr; sym_forTr; sym_foreachTr; sym_tryTr; sym_caseTr]; STATE 11959 [sym_blockTr];
   STATE 11778 [sym_asmTr; sym_withTr; sym_raiseTr; sym_statementTr; sym_gotoTr;
   sym_labeledStatementTr; sym__statementTr]; STATE 11608 [sym_assignment];
   STATE 11896 [sym_varAssignDef]; STATE 11608 [sym_varDef; sym_constDef]; STATE 859 [sym_label];
   STATE 7327 [sym__expr; sym_exprConditional]; STATE 7013 [sym__ref; sym_lambda; sym_inherited;
   sym_exprDot; sym_exprDeref; sym_exprAs; sym_exprTpl; sym_exprSubscript; sym_exprCall];
   STATE 7327 [sym_exprBinary; sym_exprUnary]; STATE 7013 [sym_exprParens; sym_exprBrackets;
   sym__literal; sym_literalString]; STATE 6066 [sym__literalString; sym_literalChar];
   STATE 7013 [sym_literalNumber]; STATE 7084 [sym__literalInt; sym__literalFloat];
   STATE 6066 [aux_sym_literalString_repeat1]; ACTIONS 3288 [anon_sym_SEMI];
   ACTIONS 609 [anon_sym_LBRACK]; ACTIONS 611 [anon_sym_LPAREN];
   ACTIONS 613 [aux_sym__literalString_token1]; ACTIONS 615 [anon_sym_POUND];
   ACTIONS 617 [aux_sym__literalInt_token1]; ACTIONS 619 [aux_sym__literalInt_token2;
   aux_sym__literalInt_token3]; ACTIONS 617 [aux_sym__literalFloat_token1];
   ACTIONS 621 [sym_kAdd; sym_kSub]; ACTIONS 623 [sym_kAt]; ACTIONS 625 [sym_kTrue; sym_kFalse];
   ACTIONS 3783 [sym_labelNumber]; ACTIONS 3 [sym__space]; ACTIONS 5 [sym_ppDirective];
   ACTIONS 3 [sym_comment]; ACTIONS 625 [sym_ppFragmentExpr];
   ACTIONS 613 [sym__literalStringMultiline]; ACTIONS 3785 [sym_identifier];
   ACTIONS 631 [sym_kSpecialize]; ACTIONS 633 [sym_kAsm]; ACTIONS 635 [sym_kBegin];
   ACTIONS 637 [sym_kCase]; ACTIONS 639 [sym_kConst]; ACTIONS 3290 [sym_kEnd; sym_kFinalization];
   ACTIONS 643 [sym_kFor]; ACTIONS 645 [sym_kFunction]; ACTIONS 647 [sym_kGoto];
   ACTIONS 649 [sym_kIf]; ACTIONS 3290 [sym_kImplementation]; ACTIONS 651 [sym_kInherited];
   ACTIONS 3290 [sym_kInitialization; sym_kInterface]; ACTIONS 625 [sym_kNil];
   ACTIONS 623 [sym_kNot]; ACTIONS 645 [sym_kProcedure]; ACTIONS 653 [sym_kRaise];
   ACTIONS 655 [sym_kRepeat]; ACTIONS 657 [sym_kString]; ACTIONS 659 [sym_kTry];
   ACTIONS 661 [sym_kVar]; ACTIONS 663 [sym_kWhile]; ACTIONS 665 [sym_kWith]].

(** State 693. *)
Definition ts_parse_table_693 : parse_row :=
  [STATE 5784 [sym_if]; STATE 5698 [sym_ifElse; sym_while; sym_repeat; sym_for; sym_foreach;
   sym_try; sym_case; sym_block; sym_asm; sym_with; sym_raise; sym_statement; sym_goto;
   sym_labeledStatement; sym__statement]; STATE 11781 [sym_ifTr; sym_ifElseTr; sym_whileTr;
   sym_repeatTr; sym_forTr; sym_foreachTr; sym_tryTr; sym_caseTr]; STATE 11959 [sym_blockTr];
   STATE 11781 [sym_asmTr; sym_withTr; sym_raiseTr; sym_statementTr; sym_gotoTr;
   sym_labeledStatementTr; sym__statementTr]; STATE 11608 [sym_assignment];
   STATE 11896 [sym_varAssignDef]; STATE 11608 [sym_varDef; sym_constDef]; STATE 859 [sym_label];
   STATE 7327 [sym__expr; sym_exprConditional]; STATE 7013 [sym__ref; sym_lambda; sym_inherited;
   sym_exprDot; sym_exprDeref; sym_exprAs; sym_exprTpl; sym_exprSubscript; sym_exprCall];
   STATE 7327 [sym_exprBinary; sym_exprUnary]; STATE 7013 [sym_exprParens; sym_exprBrackets;
   sym__literal; sym_literalString]; STATE 6066 [sym__literalString; sym_literalChar];
   STATE 7013 [sym_literalNumber]; STATE 7084 [sym__literalInt; sym__literalFloat];
   STATE 6066 [aux_sym_literalString_repeat1]; ACTIONS 3294 [anon_sym_SEMI];
   ACTIONS 609 [anon_sym_LBRACK]; ACTIONS 611 [anon_sym_LPAREN];
   ACTIONS 613 [aux_sym__literalString_token1]; ACTIONS 615 [anon_sym_POUND];
   ACTIONS 617 [aux_sym__literalInt_token1]; ACTIONS 619 [aux_sym__literalInt_token2;
   aux_sym__literalInt_token3]; ACTIONS 617 [aux_sym__literalFloat_token1];
   ACTIONS 621 [sym_kAdd; sym_kSub]; ACTIONS 623 [sym_kAt]; ACTIONS 625 [sym_kTrue; sym_kFalse];
   ACTIONS 3783 [sym_labelNumber]; ACTIONS 3 [sym__space]; ACTIONS 5 [sym_ppDirective];
   ACTIONS 3 [sym_comment]; ACTIONS 625 [sym_ppFragmentExpr];
   ACTIONS 613 [sym__literalStringMultiline]; ACTIONS 3785 [sym_identifier];
   ACTIONS 631 [sym_kSpecialize]; ACTIONS 633 [sym_kAsm]; ACTIONS 635 [sym_kBegin];
   ACTIONS 637 [sym_kCase]; ACTIONS 639 [sym_kConst]; ACTIONS 3296 [sym_kEnd; sym_kFinalization];
   ACTIONS 643 [sym_kFor]; ACTIONS 645 [sym_kFunction]; ACTIONS 647 [sym_kGoto];
   ACTIONS 649 [sym_kIf]; ACTIONS 3296 [sym_kImplementation]; ACTIONS 651 [sym_kInherited];
   ACTIONS 3296 [sym_kInitialization; sym_kInterface]; ACTIONS 625 [sym_kNil];
   ACTIONS 623 [sym_kNot]; ACTIONS 645 [sym_kProcedure]; ACTIONS 653 [sym_kRaise];
   ACTIONS 655 [sym_kRepeat]; ACTIONS 657 [sym_kString]; ACTIONS 659 [sym_kTry];
   ACTIONS 661 [sym_kVar]; ACTIONS 663 [sym_kWhile]; ACTIONS 665 [sym_kWith]].

(** State 694. *)
Definition ts_parse_table_694 : parse_row :=
  [STATE 2921 [sym__ppIf]; STATE 1214 [sym__procAttributeNoExt];
   STATE 1215 [sym__procAttributesPp]; STATE 15691 [sym_procAttribute];
   STATE 770 [aux_sym__declProc_repeat1]; ACTIONS 4113 [anon_sym_SEMI; anon_sym_COMMA];
   ACTIONS 4115 [anon_sym_LBRACK]; ACTIONS 4118 [anon_sym_LPAREN];
   ACTIONS 4113 [aux_sym__literalString_token1; anon_sym_POUND];
   ACTIONS 4118 [aux_sym__literalInt_token1]; ACTIONS 4113 [aux_sym__literalInt_token2;
   aux_sym__literalInt_token3]; ACTIONS 4118 [aux_sym__literalFloat_token1];
   ACTIONS 4120 [aux_sym_ppUsesBlock_token1]; ACTIONS 4113 [aux_sym_ppUsesBlock_token2;
   aux_sym_ppUsesBlock_token3]; ACTIONS 4118 [sym_kAdd; sym_kSub]; ACTIONS 4113 [sym_kAt;
   sym_kTrue; sym_kFalse]; ACTIONS 3 [sym__space]; ACTIONS 5 [sym_ppDirective];
   ACTIONS 3 [sym_comment]; ACTIONS 4113 [sym_ppFragmentExpr; sym__literalStringMultiline;
   sym_identifier]; ACTIONS 4123 [sym_kDefault; sym_kNodefault]; ACTIONS 4126 [sym_kDispId];
   ACTIONS 4113 [sym_kGeneric; sym_kSpecialize; sym_kOperator]; ACTIONS 4129 [sym_kPublic];
   ACTIONS 4123 [sym_kStatic; sym_kVirtual; sym_kAbstract; sym_kDynamic; sym_kOverride;
   sym_kOverload; sym_kReintroduce; sym_kStdcall; sym_kCdecl; sym_kCppdecl; sym_kPascal;
   sym_kRegister; sym_kMwpascal]; ACTIONS 4132 [sym_kMessage]; ACTIONS 4135 [sym_kDeprecated];
   ACTIONS 4123 [sym_kExperimental; sym_kPlatform; sym_kUnimplemented; sym_kCvar];
   ACTIONS 4138 [sym_kExport]; ACTIONS 4123 [sym_kFar; sym_kNear; sym_kSafecall; sym_kAssembler;
   sym_kNostackframe; sym_kInterrupt; sym_kNoreturn; sym_kIocheck; sym_kLocal; sym_kHardfloat;
   sym_kSoftfloat; sym_kMs_abi_default; sym_kMs_abi_cdecl; sym_kSaveregisters;
   sym_kSysv_abi_default; sym_kSysv_abi_cdecl; sym_kVectorcall; sym_kVarargs; sym_kWinapi];
   ACTIONS 4141 [sym_kAlias]; ACTIONS 4113 [sym_kAsm; sym_kBegin; sym_kCase; sym_kClass;
   sym_kConst; sym_kConstructor; sym_kDestructor; sym_kExports; sym_kFor; sym_kFunction;
   sym_kGoto; sym_kIf; sym_kInherited]; ACTIONS 1016 [sym_kInline]; ACTIONS 4113 [sym_kLabel;
   sym_kNil; sym_kNot; sym_kProcedure; sym_kProperty; sym_kRaise; sym_kRepeat;
   sym_kResourcestring; sym_kString; sym_kThreadvar; sym_kTry; sym_kType; sym_kUses; sym_kVar;
   sym_kWhile; sym_kWith]].

(** State 695. *)
Definition ts_parse_table_695 : parse_row :=
  [STATE 2921 [sym__ppIf]; STATE 1214 [sym__procAttributeNoExt];
   STATE 1215 [sym__procAttributesPp]; STATE 15691 [sym_procAttribute];
   STATE 851 [aux_sym__declProc_repeat1]; ACTIONS 2351 [anon_sym_SEMI; anon_sym_COMMA];
   ACTIONS 4144 [anon_sym_LBRACK]; ACTIONS 2356 [anon_sym_LPAREN];
   ACTIONS 2351 [aux_sym__literalString_token1; anon_sym_POUND];
   ACTIONS 2356 [aux_sym__literalInt_token1]; ACTIONS 2351 [aux_sym__literalInt_token2;
   aux_sym__literalInt_token3]; ACTIONS 2356 [aux_sym__literalFloat_token1];
   ACTIONS 2358 [aux_sym_ppUsesBlock_token1]; ACTIONS 2351 [aux_sym_ppUsesBlock_token2;
   aux_sym_ppUsesBlock_token3]; ACTIONS 2356 [sym_kAdd; sym_kSub]; ACTIONS 2351 [sym_kAt;
   sym_kTrue; sym_kFalse]; ACTIONS 3 [sym__space]; ACTIONS 5 [sym_ppDirective];
   ACTIONS 3 [sym_comment]; ACTIONS 2351 [sym_ppFragmentExpr; sym__literalStringMultiline;
   sym_identifier]; ACTIONS 2361 [sym_kDefault; sym_kNodefault]; ACTIONS 2364 [sym_kDispId];
   ACTIONS 2351 [sym_kGeneric; sym_kSpecialize; sym_kOperator]; ACTIONS 2367 [sym_kPublic];
   ACTIONS 2361 [sym_kStatic; sym_kVirtual; sym_kAbstract; sym_kDynamic; sym_kOverride;
   sym_kOverload; sym_kReintroduce; sym_kStdcall; sym_kCdecl; sym_kCppdecl; sym_kPascal;
   sym_kRegister; sym_kMwpascal]; ACTIONS 2370 [sym_kMessage]; ACTIONS 2373 [sym_kDeprecated];
   ACTIONS 2361 [sym_kExperimental; sym_kPlatform; sym_kUnimplemented; sym_kCvar];
   ACTIONS 2376 [sym_kExport]; ACTIONS 2361 [sym_kFar; sym_kNear; sym_kSafecall; sym_kAssembler;
   sym_kNostackframe; sym_kInterrupt; sym_kNoreturn; sym_kIocheck; sym_kLocal; sym_kHardfloat;
   sym_kSoftfloat; sym_kMs_abi_default; sym_kMs_abi_cdecl; sym_kSaveregisters;
   sym_kSysv_abi_default; sym_kSysv_abi_cdecl; sym_kVectorcall; sym_kVarargs; sym_kWinapi];
   ACTIONS 2379 [sym_kAlias]; ACTIONS 2351 [sym_kAsm; sym_kBegin; sym_kCase; sym_kClass;
   sym_kConst; sym_kConstructor; sym_kDestructor; sym_kExports; sym_kFor; sym_kFunction;
   sym_kGoto; sym_kIf; sym_kInherited]; ACTIONS 1016 [sym_kInline]; ACTIONS 2351 [sym_kLabel;
   sym_kNil; sym_kNot; sym_kProcedure; sym_kProperty; sym_kRaise; sym_kRepeat;
   sym_kResourcestring; sym_kString; sym_kThreadvar; sym_kTry; sym_kType; sym_kUses; sym_kVar;
   sym_kWhile; sym_kWith]].

(** State 696. *)
Definition ts_parse_table_696 : parse_row :=
  [STATE 2921 [sym__ppIf]; STATE 1214 [sym__procAttributeNoExt];
   STATE 1215 [sym__procAttributesPp]; STATE 15691 [sym_procAttribute];
   STATE 777 [aux_sym__declProc_repeat1]; ACTIONS 4147 [anon_sym_SEMI; anon_sym_COMMA];
   ACTIONS 4149 [anon_sym_LBRACK]; ACTIONS 4152 [anon_sym_LPAREN];
   ACTIONS 4147 [aux_sym__literalString_token1; anon_sym_POUND];
   ACTIONS 4152 [aux_sym__literalInt_token1]; ACTIONS 4147 [aux_sym__literalInt_token2;
   aux_sym__literalInt_token3]; ACTIONS 4152 [aux_sym__literalFloat_token1];
   ACTIONS 4154 [aux_sym_ppUsesBlock_token1]; ACTIONS 4147 [aux_sym_ppUsesBlock_token2;
   aux_sym_ppUsesBlock_token3]; ACTIONS 4152 [sym_kAdd; sym_kSub]; ACTIONS 4147 [sym_kAt;
   sym_kTrue; sym_kFalse]; ACTIONS 3 [sym__space]; ACTIONS 5 [sym_ppDirective];
   ACTIONS 3 [sym_comment]; ACTIONS 4147 [sym_ppFragmentExpr; sym__literalStringMultiline;
   sym_identifier]; ACTIONS 4157 [sym_kDefault; sym_kNodefault]; ACTIONS 4160 [sym_kDispId];
   ACTIONS 4147 [sym_kGeneric; sym_kSpecialize; sym_kOperator]; ACTIONS 4163 [sym_kPublic];
   ACTIONS 4157 [sym_kStatic; sym_kVirtual; sym_kAbstract; sym_kDynamic; sym_kOverride;
   sym_kOverload; sym_kReintroduce; sym_kStdcall; sym_kCdecl; sym_kCppdecl; sym_kPascal;
   sym_kRegister; sym_kMwpascal]; ACTIONS 4166 [sym_kMessage]; ACTIONS 4169 [sym_kDeprecated];
   ACTIONS 4157 [sym_kExperimental; sym_kPlatform; sym_kUnimplemented; sym_kCvar];
   ACTIONS 4172 [sym_kExport]; ACTIONS 4157 [sym_kFar; sym_kNear; sym_kSafecall; sym_kAssembler;
   sym_kNostackframe; sym_kInterrupt; sym_kNoreturn; sym_kIocheck; sym_kLocal; sym_kHardfloat;
   sym_kSoftfloat; sym_kMs_abi_default; sym_kMs_abi_cdecl; sym_kSaveregisters;
   sym_kSysv_abi_default; sym_kSysv_abi_cdecl; sym_kVectorcall; sym_kVarargs; sym_kWinapi];
   ACTIONS 4175 [sym_kAlias]; ACTIONS 4147 [sym_kAsm; sym_kBegin; sym_kCase; sym_kClass;
   sym_kConst; sym_kConstructor; sym_kDestructor; sym_kExports; sym_kFor; sym_kFunction;
   sym_kGoto; sym_kIf; sym_kInherited]; ACTIONS 1016 [sym_kInline]; ACTIONS 4147 [sym_kLabel;
   sym_kNil; sym_kNot; sym_kProcedure; sym_kProperty; sym_kRaise; sym_kRepeat;
   sym_kResourcestring; sym_kString; sym_kThreadvar; sym_kTry; sym_kType; sym_kUses; sym_kVar;
   sym_kWhile; sym_kWith]].

(** State 697. *)
Definition ts_parse_table_697 : parse_row :=
  [STATE 1204 [sym__procAttribute]; STATE 15235 [sym_procAttribute]; STATE 726 [sym_procExternal;
   aux_sym_declVar_repeat2]; ACTIONS 4178 [anon_sym_SEMI; anon_sym_COMMA];
   ACTIONS 4180 [anon_sym_LBRACK]; ACTIONS 4183 [anon_sym_LPAREN];
   ACTIONS 4178 [aux_sym__literalString_token1; anon_sym_POUND];
   ACTIONS 4183 [aux_sym__literalInt_token1]; ACTIONS 4178 [aux_sym__literalInt_token2;
   aux_sym__literalInt_token3]; ACTIONS 4183 [aux_sym__literalFloat_token1];
   ACTIONS 4178 [aux_sym_ppUsesBlock_token1; aux_sym_ppUsesBlock_token2;
   aux_sym_ppUsesBlock_token3]; ACTIONS 4183 [sym_kAdd; sym_kSub]; ACTIONS 4178 [sym_kAt;
   sym_kTrue; sym_kFalse]; ACTIONS 3 [sym__space]; ACTIONS 5 [sym_ppDirective];
   ACTIONS 3 [sym_comment]; ACTIONS 4178 [sym_ppFragmentExpr; sym__literalStringMultiline;
   sym_identifier]; ACTIONS 4185 [sym_kDefault; sym_kNodefault]; ACTIONS 4188 [sym_kDispId];
   ACTIONS 4178 [sym_kGeneric; sym_kSpecialize; sym_kOperator]; ACTIONS 4191 [sym_kPublic];
   ACTIONS 4185 [sym_kStatic; sym_kVirtual; sym_kAbstract; sym_kDynamic; sym_kOverride;
   sym_kOverload; sym_kReintroduce; sym_kStdcall; sym_kCdecl; sym_kCppdecl; sym_kPascal;
   sym_kRegister; sym_kMwpascal]; ACTIONS 3438 [sym_kExternal]; ACTIONS 4194 [sym_kMessage];
   ACTIONS 4197 [sym_kDeprecated]; ACTIONS 4185 [sym_kExperimental; sym_kPlatform;
   sym_kUnimplemented; sym_kCvar]; ACTIONS 4200 [sym_kExport]; ACTIONS 4185 [sym_kFar; sym_kNear;
   sym_kSafecall; sym_kAssembler; sym_kNostackframe; sym_kInterrupt; sym_kNoreturn; sym_kIocheck;
   sym_kLocal; sym_kHardfloat; sym_kSoftfloat; sym_kMs_abi_default; sym_kMs_abi_cdecl;
   sym_kSaveregisters; sym_kSysv_abi_default; sym_kSysv_abi_cdecl; sym_kVectorcall; sym_kVarargs;
   sym_kWinapi]; ACTIONS 4203 [sym_kAlias]; ACTIONS 4178 [sym_kAsm; sym_kBegin; sym_kCase;
   sym_kClass; sym_kConst; sym_kConstructor; sym_kDestructor; sym_kExports; sym_kFor;
   sym_kFunction; sym_kGoto; sym_kIf; sym_kInherited]; ACTIONS 1016 [sym_kInline];
   ACTIONS 4178 [sym_kLabel; sym_kNil; sym_kNot; sym_kProcedure; sym_kProperty; sym_kRaise;
   sym_kRepeat; sym_kResourcestring; sym_kString; sym_kThreadvar; sym_kTry; sym_kType; sym_kUses;
   sym_kVar; sym_kWhile; sym_kWith]].

(** State 698. *)
Definition ts_parse_table_698 : parse_row :=
  [STATE 5784 [sym_if]; STATE 5704 [sym_ifElse; sym_while; sym_repeat; sym_for; sym_foreach;
   sym_try; sym_case; sym_block; sym_asm; sym_with; sym_raise; sym_statement; sym_goto;
   sym_labeledStatement; sym__statement]; STATE 11907 [sym_ifTr; sym_ifElseTr; sym_whileTr;
   sym_repeatTr; sym_forTr; sym_foreachTr; sym_tryTr; sym_caseTr]; STATE 11959 [sym_blockTr];
   STATE 11907 [sym_asmTr; sym_withTr; sym_raiseTr; sym_statementTr; sym_gotoTr;
   sym_labeledStatementTr; sym__statementTr]; STATE 11608 [sym_assignment];
   STATE 11896 [sym_varAssignDef]; STATE 11608 [sym_varDef; sym_constDef]; STATE 859 [sym_label];
   STATE 7327 [sym__expr; sym_exprConditional]; STATE 7013 [sym__ref; sym_lambda; sym_inherited;
   sym_exprDot; sym_exprDeref; sym_exprAs; sym_exprTpl; sym_exprSubscript; sym_exprCall];
   STATE 7327 [sym_exprBinary; sym_exprUnary]; STATE 7013 [sym_exprParens; sym_exprBrackets;
   sym__literal; sym_literalString]; STATE 6066 [sym__literalString; sym_literalChar];
   STATE 7013 [sym_literalNumber]; STATE 7084 [sym__literalInt; sym__literalFloat];
   STATE 6066 [aux_sym_literalString_repeat1]; ACTIONS 3302 [anon_sym_SEMI];
   ACTIONS 609 [anon_sym_LBRACK]; ACTIONS 611 [anon_sym_LPAREN];
   ACTIONS 613 [aux_sym__literalString_token1]; ACTIONS 615 [anon_sym_POUND];
   ACTIONS 617 [aux_sym__literalInt_token1]; ACTIONS 619 [aux_sym__literalInt_token2;
   aux_sym__literalInt_token3]; ACTIONS 617 [aux_sym__literalFloat_token1];
   ACTIONS 621 [sym_kAdd; sym_kSub]; ACTIONS 623 [sym_kAt]; ACTIONS 625 [sym_kTrue; sym_kFalse];
   ACTIONS 3783 [sym_labelNumber]; ACTIONS 3 [sym__space]; ACTIONS 5 [sym_ppDirective];
   ACTIONS 3 [sym_comment]; ACTIONS 625 [sym_ppFragmentExpr];
   ACTIONS 613 [sym__literalStringMultiline]; ACTIONS 3785 [sym_identifier];
   ACTIONS 631 [sym_kSpecialize]; ACTIONS 633 [sym_kAsm]; ACTIONS 635 [sym_kBegin];
   ACTIONS 637 [sym_kCase]; ACTIONS 639 [sym_kConst]; ACTIONS 3304 [sym_kEnd; sym_kFinalization];
   ACTIONS 643 [sym_kFor]; ACTIONS 645 [sym_kFunction]; ACTIONS 647 [sym_kGoto];
   ACTIONS 649 [sym_kIf]; ACTIONS 3304 [sym_kImplementation]; ACTIONS 651 [sym_kInherited];
   ACTIONS 3304 [sym_kInitialization; sym_kInterface]; ACTIONS 625 [sym_kNil];
   ACTIONS 623 [sym_kNot]; ACTIONS 645 [sym_kProcedure]; ACTIONS 653 [sym_kRaise];
   ACTIONS 655 [sym_kRepeat]; ACTIONS 657 [sym_kString]; ACTIONS 659 [sym_kTry];
   ACTIONS 661 [sym_kVar]; ACTIONS 663 [sym_kWhile]; ACTIONS 665 [sym_kWith]].

(** State 699. *)
Definition ts_parse_table_699 : parse_row :=
  [STATE 2921 [sym__ppIf]; STATE 1214 [sym__procAttributeNoExt];
   STATE 1215 [sym__procAttributesPp]; STATE 15691 [sym_procAttribute];
   STATE 777 [aux_sym__declProc_repeat1]; ACTIONS 4206 [anon_sym_SEMI; anon_sym_COMMA];
   ACTIONS 4208 [anon_sym_LBRACK]; ACTIONS 4211 [anon_sym_LPAREN];
   ACTIONS 4206 [aux_sym__literalString_token1; anon_sym_POUND];
   ACTIONS 4211 [aux_sym__literalInt_token1]; ACTIONS 4206 [aux_sym__literalInt_token2;
   aux_sym__literalInt_token3]; ACTIONS 4211 [aux_sym__literalFloat_token1];
   ACTIONS 4213 [aux_sym_ppUsesBlock_token1]; ACTIONS 4206 [aux_sym_ppUsesBlock_token2;
   aux_sym_ppUsesBlock_token3]; ACTIONS 4211 [sym_kAdd; sym_kSub]; ACTIONS 4206 [sym_kAt;
   sym_kTrue; sym_kFalse]; ACTIONS 3 [sym__space]; ACTIONS 5 [sym_ppDirective];
   ACTIONS 3 [sym_comment]; ACTIONS 4206 [sym_ppFragmentExpr; sym__literalStringMultiline;
   sym_identifier]; ACTIONS 4216 [sym_kDefault; sym_kNodefault]; ACTIONS 4219 [sym_kDispId];
   ACTIONS 4206 [sym_kGeneric; sym_kSpecialize; sym_kOperator]; ACTIONS 4222 [sym_kPublic];
   ACTIONS 4216 [sym_kStatic; sym_kVirtual; sym_kAbstract; sym_kDynamic; sym_kOverride;
   sym_kOverload; sym_kReintroduce; sym_kStdcall; sym_kCdecl; sym_kCppdecl; sym_kPascal;
   sym_kRegister; sym_kMwpascal]; ACTIONS 4225 [sym_kMessage]; ACTIONS 4228 [sym_kDeprecated];
   ACTIONS 4216 [sym_kExperimental; sym_kPlatform; sym_kUnimplemented; sym_kCvar];
   ACTIONS 4231 [sym_kExport]; ACTIONS 4216 [sym_kFar; sym_kNear; sym_kSafecall; sym_kAssembler;
   sym_kNostackframe; sym_kInterrupt; sym_kNoreturn; sym_kIocheck; sym_kLocal; sym_kHardfloat;
   sym_kSoftfloat; sym_kMs_abi_default; sym_kMs_abi_cdecl; sym_kSaveregisters;
   sym_kSysv_abi_default; sym_kSysv_abi_cdecl; sym_kVectorcall; sym_kVarargs; sym_kWinapi];
   ACTIONS 4234 [sym_kAlias]; ACTIONS 4206 [sym_kAsm; sym_kBegin; sym_kCase; sym_kClass;
   sym_kConst; sym_kConstructor; sym_kDestructor; sym_kExports; sym_kFor; sym_kFunction;
   sym_kGoto; sym_kIf; sym_kInherited]; ACTIONS 1016 [sym_kInline]; ACTIONS 4206 [sym_kLabel;
   sym_kNil; sym_kNot; sym_kProcedure; sym_kProperty; sym_kRaise; sym_kRepeat;
   sym_kResourcestring; sym_kString; sym_kThreadvar; sym_kTry; sym_kType; sym_kUses; sym_kVar;
   sym_kWhile; sym_kWith]].

Definition ts_parse_table_part4 : list parse_row :=
  [
   ts_parse_table_514; ts_parse_table_515; ts_parse_table_516; ts_parse_table_517;
   ts_parse_table_518; ts_parse_table_519; ts_parse_table_520; ts_parse_table_521;
   ts_parse_table_522; ts_parse_table_523; ts_parse_table_524; ts_parse_table_525;
   ts_parse_table_526; ts_parse_table_527; ts_parse_table_528; ts_parse_table_529;
   ts_parse_table_530; ts_parse_table_531; ts_parse_table_532; ts_parse_table_533;
   ts_parse_table_534; ts_parse_table_535; ts_parse_table_536; ts_parse_table_537;
   ts_parse_table_538; ts_parse_table_539; ts_parse_table_540; ts_parse_table_541;
   ts_parse_table_542; ts_parse_table_543; ts_parse_table_544; ts_parse_table_545;
   ts_parse_table_546; ts_parse_table_547; ts_parse_table_548; ts_parse_table_549;
   ts_parse_table_550; ts_parse_table_551; ts_parse_table_552; ts_parse_table_553;
   ts_parse_table_554; ts_parse_table_555; ts_parse_table_556; ts_parse_table_557;
   ts_parse_table_558; ts_parse_table_559; ts_parse_table_560; ts_parse_table_561;
   ts_parse_table_562; ts_parse_table_563; ts_parse_table_564; ts_parse_table_565;
   ts_parse_table_566; ts_parse_table_567; ts_parse_table_568; ts_parse_table_569;
   ts_parse_table_570; ts_parse_table_571; ts_parse_table_572; ts_parse_table_573;
   ts_parse_table_574; ts_parse_table_575; ts_parse_table_576; ts_parse_table_577;
   ts_parse_table_578; ts_parse_table_579; ts_parse_table_580; ts_parse_table_581;
   ts_parse_table_582; ts_parse_table_583; ts_parse_table_584; ts_parse_table_585;
   ts_parse_table_586; ts_parse_table_587; ts_parse_table_588; ts_parse_table_589;
   ts_parse_table_590; ts_parse_table_591; ts_parse_table_592; ts_parse_table_593;
   ts_parse_table_594; ts_parse_table_595; ts_parse_table_596; ts_parse_table_597;
   ts_parse_table_598; ts_parse_table_599; ts_parse_table_600; ts_parse_table_601;
   ts_parse_table_602; ts_parse_table_603; ts_parse_table_604; ts_parse_table_605;
   ts_parse_table_606; ts_parse_table_607; ts_parse_table_608; ts_parse_table_609;
   ts_parse_table_610; ts_parse_table_611; ts_parse_table_612; ts_parse_table_613;
   ts_parse_table_614; ts_parse_table_615; ts_parse_table_616; ts_parse_table_617;
   ts_parse_table_618; ts_parse_table_619; ts_parse_table_620; ts_parse_table_621;
   ts_parse_table_622; ts_parse_table_623; ts_parse_table_624; ts_parse_table_625;
   ts_parse_table_626; ts_parse_table_627; ts_parse_table_628; ts_parse_table_629;
   ts_parse_table_630; ts_parse_table_631; ts_parse_table_632; ts_parse_table_633;
   ts_parse_table_634; ts_parse_table_635; ts_parse_table_636; ts_parse_table_637;
   ts_parse_table_638; ts_parse_table_639; ts_parse_table_640; ts_parse_table_641;
   ts_parse_table_642; ts_parse_table_643; ts_parse_table_644; ts_parse_table_645;
   ts_parse_table_646; ts_parse_table_647; ts_parse_table_648; ts_parse_table_649;
   ts_parse_table_650; ts_parse_table_651; ts_parse_table_652; ts_parse_table_653;
   ts_parse_table_654; ts_parse_table_655; ts_parse_table_656; ts_parse_table_657;
   ts_parse_table_658; ts_parse_table_659; ts_parse_table_660; ts_parse_table_661;
   ts_parse_table_662; ts_parse_table_663; ts_parse_table_664; ts_parse_table_665;
   ts_parse_table_666; ts_parse_table_667; ts_parse_table_668; ts_parse_table_669;
   ts_parse_table_670; ts_parse_table_671; ts_parse_table_672; ts_parse_table_673;
   ts_parse_table_674; ts_parse_table_675; ts_parse_table_676; ts_parse_table_677;
   ts_parse_table_678; ts_parse_table_679; ts_parse_table_680; ts_parse_table_681;
   ts_parse_table_682; ts_parse_table_683; ts_parse_table_684; ts_parse_table_685;
   ts_parse_table_686; ts_parse_table_687; ts_parse_table_688; ts_parse_table_689;
   ts_parse_table_690; ts_parse_table_691; ts_parse_table_692; ts_parse_table_693;
   ts_parse_table_694; ts_parse_table_695; ts_parse_table_696; ts_parse_table_697;
   ts_parse_table_698; ts_parse_table_699
  ].
