(* ===== verification/ParseTable5.v ===== *)
(** * The parse table of [parser.c], states 700 to 907

    One definition for each row of [ts_parse_table], with the initializers of
    the row in the order of the source; consecutive initializers of the same
    value are one group. *)

From S2P Require Import Prelude.
From S2P Require Import Symbols.
From S2P Require Import ParseTypes.

(** State 700. *)
Definition ts_parse_table_700 : parse_row :=
  [STATE 1204 [sym__procAttribute]; STATE 15235 [sym_procAttribute]; STATE 817 [sym_procExternal;
   aux_sym_declVar_repeat2]; ACTIONS 4237 [anon_sym_SEMI; anon_sym_COMMA];
   ACTIONS 4239 [anon_sym_LBRACK]; ACTIONS 4242 [anon_sym_LPAREN];
   ACTIONS 4237 [aux_sym__literalString_token1; anon_sym_POUND];
   ACTIONS 4242 [aux_sym__literalInt_token1]; ACTIONS 4237 [aux_sym__literalInt_token2;
   aux_sym__literalInt_token3]; ACTIONS 4242 [aux_sym__literalFloat_token1];
   ACTIONS 4237 [aux_sym_ppUsesBlock_token1; aux_sym_ppUsesBlock_token2;
   aux_sym_ppUsesBlock_token3]; ACTIONS 4242 [sym_kAdd; sym_kSub]; ACTIONS 4237 [sym_kAt;
   sym_kTrue; sym_kFalse]; ACTIONS 3 [sym__space]; ACTIONS 5 [sym_ppDirective];
   ACTIONS 3 [sym_comment]; ACTIONS 4237 [sym_ppFragmentExpr; sym__literalStringMultiline;
   sym_identifier]; ACTIONS 4244 [sym_kDefault; sym_kNodefault]; ACTIONS 4247 [sym_kDispId];
   ACTIONS 4237 [sym_kGeneric; sym_kSpecialize; sym_kOperator]; ACTIONS 4250 [sym_kPublic];
   ACTIONS 4244 [sym_kStatic; sym_kVirtual; sym_kAbstract; sym_kDynamic; sym_kOverride;
   sym_kOverload; sym_kReintroduce; sym_kStdcall; sym_kCdecl; sym_kCppdecl; sym_kPascal;
   sym_kRegister; sym_kMwpascal]; ACTIONS 3438 [sym_kExternal]; ACTIONS 4253 [sym_kMessage];
   ACTIONS 4256 [sym_kDeprecated]; ACTIONS 4244 [sym_kExperimental; sym_kPlatform;
   sym_kUnimplemented; sym_kCvar]; ACTIONS 4259 [sym_kExport]; ACTIONS 4244 [sym_kFar; sym_kNear;
   sym_kSafecall; sym_kAssembler; sym_kNostackframe; sym_kInterrupt; sym_kNoreturn; sym_kIocheck;
   sym_kLocal; sym_kHardfloat; sym_kSoftfloat; sym_kMs_abi_default; sym_kMs_abi_cdecl;
   sym_kSaveregisters; sym_kSysv_abi_default; sym_kSysv_abi_cdecl; sym_kVectorcall; sym_kVarargs;
   sym_kWinapi]; ACTIONS 4262 [sym_kAlias]; ACTIONS 4237 [sym_kAsm; sym_kBegin; sym_kCase;
   sym_kClass; sym_kConst; sym_kConstructor; sym_kDestructor; sym_kExports; sym_kFor;
   sym_kFunction; sym_kGoto; sym_kIf; sym_kInherited]; ACTIONS 1016 [sym_kInline];
   ACTIONS 4237 [sym_kLabel; sym_kNil; sym_kNot; sym_kProcedure; sym_kProperty; sym_kRaise;
   sym_kRepeat; sym_kResourcestring; sym_kString; sym_kThreadvar; sym_kTry; sym_kType; sym_kUses;
   sym_kVar; sym_kWhile; sym_kWith]].

(** State 701. *)
Definition ts_parse_table_701 : parse_row :=
  [STATE 2921 [sym__ppIf]; STATE 1214 [sym__procAttributeNoExt];
   STATE 1215 [sym__procAttributesPp]; STATE 15691 [sym_procAttribute];
   STATE 682 [aux_sym__declProc_repeat1]; ACTIONS 4265 [anon_sym_SEMI; anon_sym_COMMA];
   ACTIONS 4267 [anon_sym_LBRACK]; ACTIONS 4270 [anon_sym_LPAREN];
   ACTIONS 4265 [aux_sym__literalString_token1; anon_sym_POUND];
   ACTIONS 4270 [aux_sym__literalInt_token1]; ACTIONS 4265 [aux_sym__literalInt_token2;
   aux_sym__literalInt_token3]; ACTIONS 4270 [aux_sym__literalFloat_token1];
   ACTIONS 4272 [aux_sym_ppUsesBlock_token1]; ACTIONS 4265 [aux_sym_ppUsesBlock_token2;
   aux_sym_ppUsesBlock_token3]; ACTIONS 4270 [sym_kAdd; sym_kSub]; ACTIONS 4265 [sym_kAt;
   sym_kTrue; sym_kFalse]; ACTIONS 3 [sym__space]; ACTIONS 5 [sym_ppDirective];
   ACTIONS 3 [sym_comment]; ACTIONS 4265 [sym_ppFragmentExpr; sym__literalStringMultiline;
   sym_identifier]; ACTIONS 4275 [sym_kDefault; sym_kNodefault]; ACTIONS 4278 [sym_kDispId];
   ACTIONS 4265 [sym_kGeneric; sym_kSpecialize; sym_kOperator]; ACTIONS 4281 [sym_kPublic];
   ACTIONS 4275 [sym_kStatic; sym_kVirtual; sym_kAbstract; sym_kDynamic; sym_kOverride;
   sym_kOverload; sym_kReintroduce; sym_kStdcall; sym_kCdecl; sym_kCppdecl; sym_kPascal;
   sym_kRegister; sym_kMwpascal]; ACTIONS 4284 [sym_kMessage]; ACTIONS 4287 [sym_kDeprecated];
   ACTIONS 4275 [sym_kExperimental; sym_kPlatform; sym_kUnimplemented; sym_kCvar];
   ACTIONS 4290 [sym_kExport]; ACTIONS 4275 [sym_kFar; sym_kNear; sym_kSafecall; sym_kAssembler;
   sym_kNostackframe; sym_kInterrupt; sym_kNoreturn; sym_kIocheck; sym_kLocal; sym_kHardfloat;
   sym_kSoftfloat; sym_kMs_abi_default; sym_kMs_abi_cdecl; sym_kSaveregisters;
   sym_kSysv_abi_default; sym_kSysv_abi_cdecl; sym_kVectorcall; sym_kVarargs; sym_kWinapi];
   ACTIONS 4293 [sym_kAlias]; ACTIONS 4265 [sym_kAsm; sym_kBegin; sym_kCase; sym_kClass;
   sym_kConst; sym_kConstructor; sym_kDestructor; sym_kExports; sym_kFor; sym_kFunction;
   sym_kGoto; sym_kIf; sym_kInherited]; ACTIONS 1016 [sym_kInline]; ACTIONS 4265 [sym_kLabel;
   sym_kNil; sym_kNot; sym_kProcedure; sym_kProperty; sym_kRaise; sym_kRepeat;
   sym_kResourcestring; sym_kString; sym_kThreadvar; sym_kTry; sym_kType; sym_kUses; sym_kVar;
   sym_kWhile; sym_kWith]].

(** State 702. *)
Definition ts_parse_table_702 : parse_row :=
  [STATE 2921 [sym__ppIf]; STATE 1214 [sym__procAttributeNoExt];
   STATE 1215 [sym__procAttributesPp]; STATE 15691 [sym_procAttribute];
   STATE 759 [aux_sym__declProc_repeat1]; ACTIONS 2907 [anon_sym_SEMI; anon_sym_COMMA];
   ACTIONS 4296 [anon_sym_LBRACK]; ACTIONS 2912 [anon_sym_LPAREN];
   ACTIONS 2907 [aux_sym__literalString_token1; anon_sym_POUND];
   ACTIONS 2912 [aux_sym__literalInt_token1]; ACTIONS 2907 [aux_sym__literalInt_token2;
   aux_sym__literalInt_token3]; ACTIONS 2912 [aux_sym__literalFloat_token1];
   ACTIONS 2914 [aux_sym_ppUsesBlock_token1]; ACTIONS 2907 [aux_sym_ppUsesBlock_token2;
   aux_sym_ppUsesBlock_token3]; ACTIONS 2912 [sym_kAdd; sym_kSub]; ACTIONS 2907 [sym_kAt;
   sym_kTrue; sym_kFalse]; ACTIONS 3 [sym__space]; ACTIONS 5 [sym_ppDirective];
   ACTIONS 3 [sym_comment]; ACTIONS 2907 [sym_ppFragmentExpr; sym__literalStringMultiline;
   sym_identifier]; ACTIONS 2917 [sym_kDefault; sym_kNodefault]; ACTIONS 2920 [sym_kDispId];
   ACTIONS 2907 [sym_kGeneric; sym_kSpecialize; sym_kOperator]; ACTIONS 2923 [sym_kPublic];
   ACTIONS 2917 [sym_kStatic; sym_kVirtual; sym_kAbstract; sym_kDynamic; sym_kOverride;
   sym_kOverload; sym_kReintroduce; sym_kStdcall; sym_kCdecl; sym_kCppdecl; sym_kPascal;
   sym_kRegister; sym_kMwpascal]; ACTIONS 2926 [sym_kMessage]; ACTIONS 2929 [sym_kDeprecated];
   ACTIONS 2917 [sym_kExperimental; sym_kPlatform; sym_kUnimplemented; sym_kCvar];
   ACTIONS 2932 [sym_kExport]; ACTIONS 2917 [sym_kFar; sym_kNear; sym_kSafecall; sym_kAssembler;
   sym_kNostackframe; sym_kInterrupt; sym_kNoreturn; sym_kIocheck; sym_kLocal; sym_kHardfloat;
   sym_kSoftfloat; sym_kMs_abi_default; sym_kMs_abi_cdecl; sym_kSaveregisters;
   sym_kSysv_abi_default; sym_kSysv_abi_cdecl; sym_kVectorcall; sym_kVarargs; sym_kWinapi];
   ACTIONS 2935 [sym_kAlias]; ACTIONS 2907 [sym_kAsm; sym_kBegin; sym_kCase; sym_kClass;
   sym_kConst; sym_kConstructor; sym_kDestructor; sym_kExports; sym_kFor; sym_kFunction;
   sym_kGoto; sym_kIf; sym_kInherited]; ACTIONS 1016 [sym_kInline]; ACTIONS 2907 [sym_kLabel;
   sym_kNil; sym_kNot; sym_kProcedure; sym_kProperty; sym_kRaise; sym_kRepeat;
   sym_kResourcestring; sym_kString; sym_kThreadvar; sym_kTry; sym_kType; sym_kUses; sym_kVar;
   sym_kWhile; sym_kWith]].

(** State 703. *)
Definition ts_parse_table_703 : parse_row :=
  [STATE 5784 [sym_if]; STATE 5736 [sym_ifElse; sym_while; sym_repeat; sym_for; sym_foreach;
   sym_try; sym_case; sym_block; sym_asm; sym_with; sym_raise; sym_statement; sym_goto;
   sym__statement]; STATE 11664 [sym_ifTr; sym_ifElseTr; sym_whileTr; sym_repeatTr; sym_forTr;
   sym_foreachTr; sym_tryTr; sym_caseTr]; STATE 11564 [sym_blockTr]; STATE 11664 [sym_asmTr;
   sym_withTr; sym_raiseTr; sym_statementTr; sym_gotoTr; sym__statementTr];
   STATE 11443 [sym_assignment]; STATE 11931 [sym_varAssignDef]; STATE 11443 [sym_varDef;
   sym_constDef]; STATE 709 [sym_label]; STATE 7206 [sym__expr; sym_exprConditional];
   STATE 6884 [sym__ref; sym_lambda; sym_inherited; sym_exprDot; sym_exprDeref; sym_exprAs;
   sym_exprTpl; sym_exprSubscript; sym_exprCall]; STATE 7206 [sym_exprBinary; sym_exprUnary];
   STATE 6884 [sym_exprParens; sym_exprBrackets; sym__literal; sym_literalString];
   STATE 5959 [sym__literalString; sym_literalChar]; STATE 6884 [sym_literalNumber];
   STATE 6992 [sym__literalInt; sym__literalFloat]; STATE 709 [aux_sym_labeledStatement_repeat1];
   STATE 5959 [aux_sym_literalString_repeat1]; ACTIONS 4299 [anon_sym_SEMI];
   ACTIONS 3196 [anon_sym_LBRACK]; ACTIONS 3198 [anon_sym_LPAREN];
   ACTIONS 3200 [aux_sym__literalString_token1]; ACTIONS 3202 [anon_sym_POUND];
   ACTIONS 3204 [aux_sym__literalInt_token1]; ACTIONS 3206 [aux_sym__literalInt_token2;
   aux_sym__literalInt_token3]; ACTIONS 3204 [aux_sym__literalFloat_token1];
   ACTIONS 3208 [sym_kAdd; sym_kSub]; ACTIONS 3210 [sym_kAt]; ACTIONS 3212 [sym_kTrue;
   sym_kFalse]; ACTIONS 3214 [sym_labelNumber]; ACTIONS 3 [sym__space];
   ACTIONS 5 [sym_ppDirective]; ACTIONS 3 [sym_comment]; ACTIONS 3212 [sym_ppFragmentExpr];
   ACTIONS 3200 [sym__literalStringMultiline]; ACTIONS 3216 [sym_identifier];
   ACTIONS 3218 [sym_kSpecialize]; ACTIONS 3220 [sym_kAsm]; ACTIONS 3222 [sym_kBegin];
   ACTIONS 3224 [sym_kCase]; ACTIONS 3226 [sym_kConst]; ACTIONS 4301 [sym_kElse; sym_kEnd;
   sym_kFinalization]; ACTIONS 3232 [sym_kFor]; ACTIONS 3234 [sym_kFunction];
   ACTIONS 3236 [sym_kGoto]; ACTIONS 3274 [sym_kIf]; ACTIONS 4301 [sym_kImplementation];
   ACTIONS 3240 [sym_kInherited]; ACTIONS 4301 [sym_kInitialization; sym_kInterface];
   ACTIONS 3212 [sym_kNil]; ACTIONS 3210 [sym_kNot]; ACTIONS 3234 [sym_kProcedure];
   ACTIONS 3242 [sym_kRaise]; ACTIONS 3244 [sym_kRepeat]; ACTIONS 3246 [sym_kString];
   ACTIONS 3248 [sym_kTry]; ACTIONS 3250 [sym_kVar]; ACTIONS 3252 [sym_kWhile];
   ACTIONS 3254 [sym_kWith]].

(** State 704. *)
Definition ts_parse_table_704 : parse_row :=
  [STATE 2921 [sym__ppIf]; STATE 1214 [sym__procAttributeNoExt];
   STATE 1215 [sym__procAttributesPp]; STATE 15691 [sym_procAttribute];
   STATE 777 [aux_sym__declProc_repeat1]; ACTIONS 4303 [anon_sym_SEMI; anon_sym_COMMA];
   ACTIONS 4305 [anon_sym_LBRACK]; ACTIONS 4308 [anon_sym_LPAREN];
   ACTIONS 4303 [aux_sym__literalString_token1; anon_sym_POUND];
   ACTIONS 4308 [aux_sym__literalInt_token1]; ACTIONS 4303 [aux_sym__literalInt_token2;
   aux_sym__literalInt_token3]; ACTIONS 4308 [aux_sym__literalFloat_token1];
   ACTIONS 4310 [aux_sym_ppUsesBlock_token1]; ACTIONS 4303 [aux_sym_ppUsesBlock_token2;
   aux_sym_ppUsesBlock_token3]; ACTIONS 4308 [sym_kAdd; sym_kSub]; ACTIONS 4303 [sym_kAt;
   sym_kTrue; sym_kFalse]; ACTIONS 3 [sym__space]; ACTIONS 5 [sym_ppDirective];
   ACTIONS 3 [sym_comment]; ACTIONS 4303 [sym_ppFragmentExpr; sym__literalStringMultiline;
   sym_identifier]; ACTIONS 4313 [sym_kDefault; sym_kNodefault]; ACTIONS 4316 [sym_kDispId];
   ACTIONS 4303 [sym_kGeneric; sym_kSpecialize; sym_kOperator]; ACTIONS 4319 [sym_kPublic];
   ACTIONS 4313 [sym_kStatic; sym_kVirtual; sym_kAbstract; sym_kDynamic; sym_kOverride;
   sym_kOverload; sym_kReintroduce; sym_kStdcall; sym_kCdecl; sym_kCppdecl; sym_kPascal;
   sym_kRegister; sym_kMwpascal]; ACTIONS 4322 [sym_kMessage]; ACTIONS 4325 [sym_kDeprecated];
   ACTIONS 4313 [sym_kExperimental; sym_kPlatform; sym_kUnimplemented; sym_kCvar];
   ACTIONS 4328 [sym_kExport]; ACTIONS 4313 [sym_kFar; sym_kNear; sym_kSafecall; sym_kAssembler;
   sym_kNostackframe; sym_kInterrupt; sym_kNoreturn; sym_kIocheck; sym_kLocal; sym_kHardfloat;
   sym_kSoftfloat; sym_kMs_abi_default; sym_kMs_abi_cdecl; sym_kSaveregisters;
   sym_kSysv_abi_default; sym_kSysv_abi_cdecl; sym_kVectorcall; sym_kVarargs; sym_kWinapi];
   ACTIONS 4331 [sym_kAlias]; ACTIONS 4303 [sym_kAsm; sym_kBegin; sym_kCase; sym_kClass;
   sym_kConst; sym_kConstructor; sym_kDestructor; sym_kExports; sym_kFor; sym_kFunction;
   sym_kGoto; sym_kIf; sym_kInherited]; ACTIONS 1016 [sym_kInline]; ACTIONS 4303 [sym_kLabel;
   sym_kNil; sym_kNot; sym_kProcedure; sym_kProperty; sym_kRaise; sym_kRepeat;
   sym_kResourcestring; sym_kString; sym_kThreadvar; sym_kTry; sym_kType; sym_kUses; sym_kVar;
   sym_kWhile; sym_kWith]].

(** State 705. *)
Definition ts_parse_table_705 : parse_row :=
  [STATE 2921 [sym__ppIf]; STATE 1214 [sym__procAttributeNoExt];
   STATE 1215 [sym__procAttributesPp]; STATE 15691 [sym_procAttribute];
   STATE 777 [aux_sym__declProc_repeat1]; ACTIONS 2968 [anon_sym_SEMI; anon_sym_COMMA];
   ACTIONS 4334 [anon_sym_LBRACK]; ACTIONS 2973 [anon_sym_LPAREN];
   ACTIONS 2968 [aux_sym__literalString_token1; anon_sym_POUND];
   ACTIONS 2973 [aux_sym__literalInt_token1]; ACTIONS 2968 [aux_sym__literalInt_token2;
   aux_sym__literalInt_token3]; ACTIONS 2973 [aux_sym__literalFloat_token1];
   ACTIONS 2975 [aux_sym_ppUsesBlock_token1]; ACTIONS 2968 [aux_sym_ppUsesBlock_token2;
   aux_sym_ppUsesBlock_token3]; ACTIONS 2973 [sym_kAdd; sym_kSub]; ACTIONS 2968 [sym_kAt;
   sym_kTrue; sym_kFalse]; ACTIONS 3 [sym__space]; ACTIONS 5 [sym_ppDirective];
   ACTIONS 3 [sym_comment]; ACTIONS 2968 [sym_ppFragmentExpr; sym__literalStringMultiline;
   sym_identifier]; ACTIONS 2978 [sym_kDefault; sym_kNodefault]; ACTIONS 2981 [sym_kDispId];
   ACTIONS 2968 [sym_kGeneric; sym_kSpecialize; sym_kOperator]; ACTIONS 2984 [sym_kPublic];
   ACTIONS 2978 [sym_kStatic; sym_kVirtual; sym_kAbstract; sym_kDynamic; sym_kOverride;
   sym_kOverload; sym_kReintroduce; sym_kStdcall; sym_kCdecl; sym_kCppdecl; sym_kPascal;
   sym_kRegister; sym_kMwpascal]; ACTIONS 2987 [sym_kMessage]; ACTIONS 2990 [sym_kDeprecated];
   ACTIONS 2978 [sym_kExperimental; sym_kPlatform; sym_kUnimplemented; sym_kCvar];
   ACTIONS 2993 [sym_kExport]; ACTIONS 2978 [sym_kFar; sym_kNear; sym_kSafecall; sym_kAssembler;
   sym_kNostackframe; sym_kInterrupt; sym_kNoreturn; sym_kIocheck; sym_kLocal; sym_kHardfloat;
   sym_kSoftfloat; sym_kMs_abi_default; sym_kMs_abi_cdecl; sym_kSaveregisters;
   sym_kSysv_abi_default; sym_kSysv_abi_cdecl; sym_kVectorcall; sym_kVarargs; sym_kWinapi];
   ACTIONS 2996 [sym_kAlias]; ACTIONS 2968 [sym_kAsm; sym_kBegin; sym_kCase; sym_kClass;
   sym_kConst; sym_kConstructor; sym_kDestructor; sym_kExports; sym_kFor; sym_kFunction;
   sym_kGoto; sym_kIf; sym_kInherited]; ACTIONS 1016 [sym_kInline]; ACTIONS 2968 [sym_kLabel;
   sym_kNil; sym_kNot; sym_kProcedure; sym_kProperty; sym_kRaise; sym_kRepeat;
   sym_kResourcestring; sym_kString; sym_kThreadvar; sym_kTry; sym_kType; sym_kUses; sym_kVar;
   sym_kWhile; sym_kWith]].

(** State 706. *)
Definition ts_parse_table_706 : parse_row :=
  [STATE 2921 [sym__ppIf]; STATE 1214 [sym__procAttributeNoExt];
   STATE 1215 [sym__procAttributesPp]; STATE 15691 [sym_procAttribute];
   STATE 777 [aux_sym__declProc_repeat1]; ACTIONS 4337 [anon_sym_SEMI; anon_sym_COMMA];
   ACTIONS 4339 [anon_sym_LBRACK]; ACTIONS 4342 [anon_sym_LPAREN];
   ACTIONS 4337 [aux_sym__literalString_token1; anon_sym_POUND];
   ACTIONS 4342 [aux_sym__literalInt_token1]; ACTIONS 4337 [aux_sym__literalInt_token2;
   aux_sym__literalInt_token3]; ACTIONS 4342 [aux_sym__literalFloat_token1];
   ACTIONS 4344 [aux_sym_ppUsesBlock_token1]; ACTIONS 4337 [aux_sym_ppUsesBlock_token2;
   aux_sym_ppUsesBlock_token3]; ACTIONS 4342 [sym_kAdd; sym_kSub]; ACTIONS 4337 [sym_kAt;
   sym_kTrue; sym_kFalse]; ACTIONS 3 [sym__space]; ACTIONS 5 [sym_ppDirective];
   ACTIONS 3 [sym_comment]; ACTIONS 4337 [sym_ppFragmentExpr; sym__literalStringMultiline;
   sym_identifier]; ACTIONS 4347 [sym_kDefault; sym_kNodefault]; ACTIONS 4350 [sym_kDispId];
   ACTIONS 4337 [sym_kGeneric; sym_kSpecialize; sym_kOperator]; ACTIONS 4353 [sym_kPublic];
   ACTIONS 4347 [sym_kStatic; sym_kVirtual; sym_kAbstract; sym_kDynamic; sym_kOverride;
   sym_kOverload; sym_kReintroduce; sym_kStdcall; sym_kCdecl; sym_kCppdecl; sym_kPascal;
   sym_kRegister; sym_kMwpascal]; ACTIONS 4356 [sym_kMessage]; ACTIONS 4359 [sym_kDeprecated];
   ACTIONS 4347 [sym_kExperimental; sym_kPlatform; sym_kUnimplemented; sym_kCvar];
   ACTIONS 4362 [sym_kExport]; ACTIONS 4347 [sym_kFar; sym_kNear; sym_kSafecall; sym_kAssembler;
   sym_kNostackframe; sym_kInterrupt; sym_kNoreturn; sym_kIocheck; sym_kLocal; sym_kHardfloat;
   sym_kSoftfloat; sym_kMs_abi_default; sym_kMs_abi_cdecl; sym_kSaveregisters;
   sym_kSysv_abi_default; sym_kSysv_abi_cdecl; sym_kVectorcall; sym_kVarargs; sym_kWinapi];
   ACTIONS 4365 [sym_kAlias]; ACTIONS 4337 [sym_kAsm; sym_kBegin; sym_kCase; sym_kClass;
   sym_kConst; sym_kConstructor; sym_kDestructor; sym_kExports; sym_kFor; sym_kFunction;
   sym_kGoto; sym_kIf; sym_kInherited]; ACTIONS 1016 [sym_kInline]; ACTIONS 4337 [sym_kLabel;
   sym_kNil; sym_kNot; sym_kProcedure; sym_kProperty; sym_kRaise; sym_kRepeat;
   sym_kResourcestring; sym_kString; sym_kThreadvar; sym_kTry; sym_kType; sym_kUses; sym_kVar;
   sym_kWhile; sym_kWith]].

(** State 707. *)
Definition ts_parse_table_707 : parse_row :=
  [STATE 1204 [sym__procAttribute]; STATE 15235 [sym_procAttribute]; STATE 826 [sym_procExternal;
   aux_sym_declVar_repeat2]; ACTIONS 4368 [anon_sym_SEMI; anon_sym_COMMA];
   ACTIONS 4371 [anon_sym_LBRACK]; ACTIONS 4375 [anon_sym_LPAREN];
   ACTIONS 4368 [aux_sym__literalString_token1; anon_sym_POUND];
   ACTIONS 4375 [aux_sym__literalInt_token1]; ACTIONS 4368 [aux_sym__literalInt_token2;
   aux_sym__literalInt_token3]; ACTIONS 4375 [aux_sym__literalFloat_token1];
   ACTIONS 4368 [aux_sym_ppUsesBlock_token1; aux_sym_ppUsesBlock_token2;
   aux_sym_ppUsesBlock_token3]; ACTIONS 4375 [sym_kAdd; sym_kSub]; ACTIONS 4368 [sym_kAt;
   sym_kTrue; sym_kFalse]; ACTIONS 3 [sym__space]; ACTIONS 5 [sym_ppDirective];
   ACTIONS 3 [sym_comment]; ACTIONS 4368 [sym_ppFragmentExpr; sym__literalStringMultiline;
   sym_identifier]; ACTIONS 4378 [sym_kDefault; sym_kNodefault]; ACTIONS 4382 [sym_kDispId];
   ACTIONS 4368 [sym_kGeneric; sym_kSpecialize; sym_kOperator]; ACTIONS 4386 [sym_kPublic];
   ACTIONS 4378 [sym_kStatic; sym_kVirtual; sym_kAbstract; sym_kDynamic; sym_kOverride;
   sym_kOverload; sym_kReintroduce; sym_kStdcall; sym_kCdecl; sym_kCppdecl; sym_kPascal;
   sym_kRegister; sym_kMwpascal]; ACTIONS 3438 [sym_kExternal]; ACTIONS 4390 [sym_kMessage];
   ACTIONS 4394 [sym_kDeprecated]; ACTIONS 4378 [sym_kExperimental; sym_kPlatform;
   sym_kUnimplemented; sym_kCvar]; ACTIONS 4398 [sym_kExport]; ACTIONS 4378 [sym_kFar; sym_kNear;
   sym_kSafecall; sym_kAssembler; sym_kNostackframe; sym_kInterrupt; sym_kNoreturn; sym_kIocheck;
   sym_kLocal; sym_kHardfloat; sym_kSoftfloat; sym_kMs_abi_default; sym_kMs_abi_cdecl;
   sym_kSaveregisters; sym_kSysv_abi_default; sym_kSysv_abi_cdecl; sym_kVectorcall; sym_kVarargs;
   sym_kWinapi]; ACTIONS 4402 [sym_kAlias]; ACTIONS 4368 [sym_kAsm; sym_kBegin; sym_kCase;
   sym_kClass; sym_kConst; sym_kConstructor; sym_kDestructor; sym_kExports; sym_kFor;
   sym_kFunction; sym_kGoto; sym_kIf; sym_kInherited]; ACTIONS 1016 [sym_kInline];
   ACTIONS 4368 [sym_kLabel; sym_kNil; sym_kNot; sym_kProcedure; sym_kProperty; sym_kRaise;
   sym_kRepeat; sym_kResourcestring; sym_kString; sym_kThreadvar; sym_kTry; sym_kType; sym_kUses;
   sym_kVar; sym_kWhile; sym_kWith]].

(** State 708. *)
Definition ts_parse_table_708 : parse_row :=
  [STATE 2921 [sym__ppIf]; STATE 1214 [sym__procAttributeNoExt];
   STATE 1215 [sym__procAttributesPp]; STATE 15691 [sym_procAttribute];
   STATE 782 [aux_sym__declProc_repeat1]; ACTIONS 4406 [anon_sym_SEMI; anon_sym_COMMA];
   ACTIONS 4408 [anon_sym_LBRACK]; ACTIONS 4411 [anon_sym_LPAREN];
   ACTIONS 4406 [aux_sym__literalString_token1; anon_sym_POUND];
   ACTIONS 4411 [aux_sym__literalInt_token1]; ACTIONS 4406 [aux_sym__literalInt_token2;
   aux_sym__literalInt_token3]; ACTIONS 4411 [aux_sym__literalFloat_token1];
   ACTIONS 4413 [aux_sym_ppUsesBlock_token1]; ACTIONS 4406 [aux_sym_ppUsesBlock_token2;
   aux_sym_ppUsesBlock_token3]; ACTIONS 4411 [sym_kAdd; sym_kSub]; ACTIONS 4406 [sym_kAt;
   sym_kTrue; sym_kFalse]; ACTIONS 3 [sym__space]; ACTIONS 5 [sym_ppDirective];
   ACTIONS 3 [sym_comment]; ACTIONS 4406 [sym_ppFragmentExpr; sym__literalStringMultiline;
   sym_identifier]; ACTIONS 4416 [sym_kDefault; sym_kNodefault]; ACTIONS 4419 [sym_kDispId];
   ACTIONS 4406 [sym_kGeneric; sym_kSpecialize; sym_kOperator]; ACTIONS 4422 [sym_kPublic];
   ACTIONS 4416 [sym_kStatic; sym_kVirtual; sym_kAbstract; sym_kDynamic; sym_kOverride;
   sym_kOverload; sym_kReintroduce; sym_kStdcall; sym_kCdecl; sym_kCppdecl; sym_kPascal;
   sym_kRegister; sym_kMwpascal]; ACTIONS 4425 [sym_kMessage]; ACTIONS 4428 [sym_kDeprecated];
   ACTIONS 4416 [sym_kExperimental; sym_kPlatform; sym_kUnimplemented; sym_kCvar];
   ACTIONS 4431 [sym_kExport]; ACTIONS 4416 [sym_kFar; sym_kNear; sym_kSafecall; sym_kAssembler;
   sym_kNostackframe; sym_kInterrupt; sym_kNoreturn; sym_kIocheck; sym_kLocal; sym_kHardfloat;
   sym_kSoftfloat; sym_kMs_abi_default; sym_kMs_abi_cdecl; sym_kSaveregisters;
   sym_kSysv_abi_default; sym_kSysv_abi_cdecl; sym_kVectorcall; sym_kVarargs; sym_kWinapi];
   ACTIONS 4434 [sym_kAlias]; ACTIONS 4406 [sym_kAsm; sym_kBegin; sym_kCase; sym_kClass;
   sym_kConst; sym_kConstructor; sym_kDestructor; sym_kExports; sym_kFor; sym_kFunction;
   sym_kGoto; sym_kIf; sym_kInherited]; ACTIONS 1016 [sym_kInline]; ACTIONS 4406 [sym_kLabel;
   sym_kNil; sym_kNot; sym_kProcedure; sym_kProperty; sym_kRaise; sym_kRepeat;
   sym_kResourcestring; sym_kString; sym_kThreadvar; sym_kTry; sym_kType; sym_kUses; sym_kVar;
   sym_kWhile; sym_kWith]].

(** State 709. *)
Definition ts_parse_table_709 : parse_row :=
  [STATE 5784 [sym_if]; STATE 5740 [sym_ifElse; sym_while; sym_repeat; sym_for; sym_foreach;
   sym_try; sym_case; sym_block; sym_asm; sym_with; sym_raise; sym_statement; sym_goto;
   sym__statement]; STATE 11621 [sym_ifTr; sym_ifElseTr; sym_whileTr; sym_repeatTr; sym_forTr;
   sym_foreachTr; sym_tryTr; sym_caseTr]; STATE 11564 [sym_blockTr]; STATE 11621 [sym_asmTr;
   sym_withTr; sym_raiseTr; sym_statementTr; sym_gotoTr; sym__statementTr];
   STATE 11443 [sym_assignment]; STATE 11931 [sym_varAssignDef]; STATE 11443 [sym_varDef;
   sym_constDef]; STATE 5625 [sym_label]; STATE 7206 [sym__expr; sym_exprConditional];
   STATE 6884 [sym__ref; sym_lambda; sym_inherited; sym_exprDot; sym_exprDeref; sym_exprAs;
   sym_exprTpl; sym_exprSubscript; sym_exprCall]; STATE 7206 [sym_exprBinary; sym_exprUnary];
   STATE 6884 [sym_exprParens; sym_exprBrackets; sym__literal; sym_literalString];
   STATE 5959 [sym__literalString; sym_literalChar]; STATE 6884 [sym_literalNumber];
   STATE 6992 [sym__literalInt; sym__literalFloat];
   STATE 5625 [aux_sym_labeledStatement_repeat1]; STATE 5959 [aux_sym_literalString_repeat1];
   ACTIONS 4437 [anon_sym_SEMI]; ACTIONS 3196 [anon_sym_LBRACK]; ACTIONS 3198 [anon_sym_LPAREN];
   ACTIONS 3200 [aux_sym__literalString_token1]; ACTIONS 3202 [anon_sym_POUND];
   ACTIONS 3204 [aux_sym__literalInt_token1]; ACTIONS 3206 [aux_sym__literalInt_token2;
   aux_sym__literalInt_token3]; ACTIONS 3204 [aux_sym__literalFloat_token1];
   ACTIONS 3208 [sym_kAdd; sym_kSub]; ACTIONS 3210 [sym_kAt]; ACTIONS 3212 [sym_kTrue;
   sym_kFalse]; ACTIONS 3214 [sym_labelNumber]; ACTIONS 3 [sym__space];
   ACTIONS 5 [sym_ppDirective]; ACTIONS 3 [sym_comment]; ACTIONS 3212 [sym_ppFragmentExpr];
   ACTIONS 3200 [sym__literalStringMultiline]; ACTIONS 3216 [sym_identifier];
   ACTIONS 3218 [sym_kSpecialize]; ACTIONS 3220 [sym_kAsm]; ACTIONS 3222 [sym_kBegin];
   ACTIONS 3224 [sym_kCase]; ACTIONS 3226 [sym_kConst]; ACTIONS 4439 [sym_kElse; sym_kEnd;
   sym_kFinalization]; ACTIONS 3232 [sym_kFor]; ACTIONS 3234 [sym_kFunction];
   ACTIONS 3236 [sym_kGoto]; ACTIONS 3274 [sym_kIf]; ACTIONS 4439 [sym_kImplementation];
   ACTIONS 3240 [sym_kInherited]; ACTIONS 4439 [sym_kInitialization; sym_kInterface];
   ACTIONS 3212 [sym_kNil]; ACTIONS 3210 [sym_kNot]; ACTIONS 3234 [sym_kProcedure];
   ACTIONS 3242 [sym_kRaise]; ACTIONS 3244 [sym_kRepeat]; ACTIONS 3246 [sym_kString];
   ACTIONS 3248 [sym_kTry]; ACTIONS 3250 [sym_kVar]; ACTIONS 3252 [sym_kWhile];
   ACTIONS 3254 [sym_kWith]].

(** State 710. *)
Definition ts_parse_table_710 : parse_row :=
  [STATE 2921 [sym__ppIf]; STATE 1214 [sym__procAttributeNoExt];
   STATE 1215 [sym__procAttributesPp]; STATE 15691 [sym_procAttribute];
   STATE 762 [aux_sym__declProc_repeat1]; ACTIONS 3001 [anon_sym_SEMI; anon_sym_COMMA];
   ACTIONS 4441 [anon_sym_LBRACK]; ACTIONS 3006 [anon_sym_LPAREN];
   ACTIONS 3001 [aux_sym__literalString_token1; anon_sym_POUND];
   ACTIONS 3006 [aux_sym__literalInt_token1]; ACTIONS 3001 [aux_sym__literalInt_token2;
   aux_sym__literalInt_token3]; ACTIONS 3006 [aux_sym__literalFloat_token1];
   ACTIONS 3008 [aux_sym_ppUsesBlock_token1]; ACTIONS 3001 [aux_sym_ppUsesBlock_token2;
   aux_sym_ppUsesBlock_token3]; ACTIONS 3006 [sym_kAdd; sym_kSub]; ACTIONS 3001 [sym_kAt;
   sym_kTrue; sym_kFalse]; ACTIONS 3 [sym__space]; ACTIONS 5 [sym_ppDirective];
   ACTIONS 3 [sym_comment]; ACTIONS 3001 [sym_ppFragmentExpr; sym__literalStringMultiline;
   sym_identifier]; ACTIONS 3011 [sym_kDefault; sym_kNodefault]; ACTIONS 3014 [sym_kDispId];
   ACTIONS 3001 [sym_kGeneric; sym_kSpecialize; sym_kOperator]; ACTIONS 3017 [sym_kPublic];
   ACTIONS 3011 [sym_kStatic; sym_kVirtual; sym_kAbstract; sym_kDynamic; sym_kOverride;
   sym_kOverload; sym_kReintroduce; sym_kStdcall; sym_kCdecl; sym_kCppdecl; sym_kPascal;
   sym_kRegister; sym_kMwpascal]; ACTIONS 3020 [sym_kMessage]; ACTIONS 3023 [sym_kDeprecated];
   ACTIONS 3011 [sym_kExperimental; sym_kPlatform; sym_kUnimplemented; sym_kCvar];
   ACTIONS 3026 [sym_kExport]; ACTIONS 3011 [sym_kFar; sym_kNear; sym_kSafecall; sym_kAssembler;
   sym_kNostackframe; sym_kInterrupt; sym_kNoreturn; sym_kIocheck; sym_kLocal; sym_kHardfloat;
   sym_kSoftfloat; sym_kMs_abi_default; sym_kMs_abi_cdecl; sym_kSaveregisters;
   sym_kSysv_abi_default; sym_kSysv_abi_cdecl; sym_kVectorcall; sym_kVarargs; sym_kWinapi];
   ACTIONS 3029 [sym_kAlias]; ACTIONS 3001 [sym_kAsm; sym_kBegin; sym_kCase; sym_kClass;
   sym_kConst; sym_kConstructor; sym_kDestructor; sym_kExports; sym_kFor; sym_kFunction;
   sym_kGoto; sym_kIf; sym_kInherited]; ACTIONS 1016 [sym_kInline]; ACTIONS 3001 [sym_kLabel;
   sym_kNil; sym_kNot; sym_kProcedure; sym_kProperty; sym_kRaise; sym_kRepeat;
   sym_kResourcestring; sym_kString; sym_kThreadvar; sym_kTry; sym_kType; sym_kUses; sym_kVar;
   sym_kWhile; sym_kWith]].

(** State 711. *)
Definition ts_parse_table_711 : parse_row :=
  [STATE 2921 [sym__ppIf]; STATE 1214 [sym__procAttributeNoExt];
   STATE 1215 [sym__procAttributesPp]; STATE 15691 [sym_procAttribute];
   STATE 722 [aux_sym__declProc_repeat1]; ACTIONS 2590 [anon_sym_SEMI; anon_sym_COMMA];
   ACTIONS 4444 [anon_sym_LBRACK]; ACTIONS 2595 [anon_sym_LPAREN];
   ACTIONS 2590 [aux_sym__literalString_token1; anon_sym_POUND];
   ACTIONS 2595 [aux_sym__literalInt_token1]; ACTIONS 2590 [aux_sym__literalInt_token2;
   aux_sym__literalInt_token3]; ACTIONS 2595 [aux_sym__literalFloat_token1];
   ACTIONS 2597 [aux_sym_ppUsesBlock_token1]; ACTIONS 2590 [aux_sym_ppUsesBlock_token2;
   aux_sym_ppUsesBlock_token3]; ACTIONS 2595 [sym_kAdd; sym_kSub]; ACTIONS 2590 [sym_kAt;
   sym_kTrue; sym_kFalse]; ACTIONS 3 [sym__space]; ACTIONS 5 [sym_ppDirective];
   ACTIONS 3 [sym_comment]; ACTIONS 2590 [sym_ppFragmentExpr; sym__literalStringMultiline;
   sym_identifier]; ACTIONS 2600 [sym_kDefault; sym_kNodefault]; ACTIONS 2603 [sym_kDispId];
   ACTIONS 2590 [sym_kGeneric; sym_kSpecialize; sym_kOperator]; ACTIONS 2606 [sym_kPublic];
   ACTIONS 2600 [sym_kStatic; sym_kVirtual; sym_kAbstract; sym_kDynamic; sym_kOverride;
   sym_kOverload; sym_kReintroduce; sym_kStdcall; sym_kCdecl; sym_kCppdecl; sym_kPascal;
   sym_kRegister; sym_kMwpascal]; ACTIONS 2609 [sym_kMessage]; ACTIONS 2612 [sym_kDeprecated];
   ACTIONS 2600 [sym_kExperimental; sym_kPlatform; sym_kUnimplemented; sym_kCvar];
   ACTIONS 2615 [sym_kExport]; ACTIONS 2600 [sym_kFar; sym_kNear; sym_kSafecall; sym_kAssembler;
   sym_kNostackframe; sym_kInterrupt; sym_kNoreturn; sym_kIocheck; sym_kLocal; sym_kHardfloat;
   sym_kSoftfloat; sym_kMs_abi_default; sym_kMs_abi_cdecl; sym_kSaveregisters;
   sym_kSysv_abi_default; sym_kSysv_abi_cdecl; sym_kVectorcall; sym_kVarargs; sym_kWinapi];
   ACTIONS 2618 [sym_kAlias]; ACTIONS 2590 [sym_kAsm; sym_kBegin; sym_kCase; sym_kClass;
   sym_kConst; sym_kConstructor; sym_kDestructor; sym_kExports; sym_kFor; sym_kFunction;
   sym_kGoto; sym_kIf; sym_kInherited]; ACTIONS 1016 [sym_kInline]; ACTIONS 2590 [sym_kLabel;
   sym_kNil; sym_kNot; sym_kProcedure; sym_kProperty; sym_kRaise; sym_kRepeat;
   sym_kResourcestring; sym_kString; sym_kThreadvar; sym_kTry; sym_kType; sym_kUses; sym_kVar;
   sym_kWhile; sym_kWith]].

(** State 712. *)
Definition ts_parse_table_712 : parse_row :=
  [STATE 1204 [sym__procAttribute]; STATE 15235 [sym_procAttribute]; STATE 817 [sym_procExternal;
   aux_sym_declVar_repeat2]; ACTIONS 4447 [anon_sym_SEMI; anon_sym_COMMA];
   ACTIONS 4449 [anon_sym_LBRACK]; ACTIONS 4452 [anon_sym_LPAREN];
   ACTIONS 4447 [aux_sym__literalString_token1; anon_sym_POUND];
   ACTIONS 4452 [aux_sym__literalInt_token1]; ACTIONS 4447 [aux_sym__literalInt_token2;
   aux_sym__literalInt_token3]; ACTIONS 4452 [aux_sym__literalFloat_token1];
   ACTIONS 4447 [aux_sym_ppUsesBlock_token1; aux_sym_ppUsesBlock_token2;
   aux_sym_ppUsesBlock_token3]; ACTIONS 4452 [sym_kAdd; sym_kSub]; ACTIONS 4447 [sym_kAt;
   sym_kTrue; sym_kFalse]; ACTIONS 3 [sym__space]; ACTIONS 5 [sym_ppDirective];
   ACTIONS 3 [sym_comment]; ACTIONS 4447 [sym_ppFragmentExpr; sym__literalStringMultiline;
   sym_identifier]; ACTIONS 4454 [sym_kDefault; sym_kNodefault]; ACTIONS 4457 [sym_kDispId];
   ACTIONS 4447 [sym_kGeneric; sym_kSpecialize; sym_kOperator]; ACTIONS 4460 [sym_kPublic];
   ACTIONS 4454 [sym_kStatic; sym_kVirtual; sym_kAbstract; sym_kDynamic; sym_kOverride;
   sym_kOverload; sym_kReintroduce; sym_kStdcall; sym_kCdecl; sym_kCppdecl; sym_kPascal;
   sym_kRegister; sym_kMwpascal]; ACTIONS 3438 [sym_kExternal]; ACTIONS 4463 [sym_kMessage];
   ACTIONS 4466 [sym_kDeprecated]; ACTIONS 4454 [sym_kExperimental; sym_kPlatform;
   sym_kUnimplemented; sym_kCvar]; ACTIONS 4469 [sym_kExport]; ACTIONS 4454 [sym_kFar; sym_kNear;
   sym_kSafecall; sym_kAssembler; sym_kNostackframe; sym_kInterrupt; sym_kNoreturn; sym_kIocheck;
   sym_kLocal; sym_kHardfloat; sym_kSoftfloat; sym_kMs_abi_default; sym_kMs_abi_cdecl;
   sym_kSaveregisters; sym_kSysv_abi_default; sym_kSysv_abi_cdecl; sym_kVectorcall; sym_kVarargs;
   sym_kWinapi]; ACTIONS 4472 [sym_kAlias]; ACTIONS 4447 [sym_kAsm; sym_kBegin; sym_kCase;
   sym_kClass; sym_kConst; sym_kConstructor; sym_kDestructor; sym_kExports; sym_kFor;
   sym_kFunction; sym_kGoto; sym_kIf; sym_kInherited]; ACTIONS 1016 [sym_kInline];
   ACTIONS 4447 [sym_kLabel; sym_kNil; sym_kNot; sym_kProcedure; sym_kProperty; sym_kRaise;
   sym_kRepeat; sym_kResourcestring; sym_kString; sym_kThreadvar; sym_kTry; sym_kType; sym_kUses;
   sym_kVar; sym_kWhile; sym_kWith]].

(** State 713. *)
Definition ts_parse_table_713 : parse_row :=
  [STATE 2921 [sym__ppIf]; STATE 1214 [sym__procAttributeNoExt];
   STATE 1215 [sym__procAttributesPp]; STATE 15691 [sym_procAttribute];
   STATE 784 [aux_sym__declProc_repeat1]; ACTIONS 3034 [anon_sym_SEMI; anon_sym_COMMA];
   ACTIONS 4475 [anon_sym_LBRACK]; ACTIONS 3039 [anon_sym_LPAREN];
   ACTIONS 3034 [aux_sym__literalString_token1; anon_sym_POUND];
   ACTIONS 3039 [aux_sym__literalInt_token1]; ACTIONS 3034 [aux_sym__literalInt_token2;
   aux_sym__literalInt_token3]; ACTIONS 3039 [aux_sym__literalFloat_token1];
   ACTIONS 3041 [aux_sym_ppUsesBlock_token1]; ACTIONS 3034 [aux_sym_ppUsesBlock_token2;
   aux_sym_ppUsesBlock_token3]; ACTIONS 3039 [sym_kAdd; sym_kSub]; ACTIONS 3034 [sym_kAt;
   sym_kTrue; sym_kFalse]; ACTIONS 3 [sym__space]; ACTIONS 5 [sym_ppDirective];
   ACTIONS 3 [sym_comment]; ACTIONS 3034 [sym_ppFragmentExpr; sym__literalStringMultiline;
   sym_identifier]; ACTIONS 3044 [sym_kDefault; sym_kNodefault]; ACTIONS 3047 [sym_kDispId];
   ACTIONS 3034 [sym_kGeneric; sym_kSpecialize; sym_kOperator]; ACTIONS 3050 [sym_kPublic];
   ACTIONS 3044 [sym_kStatic; sym_kVirtual; sym_kAbstract; sym_kDynamic; sym_kOverride;
   sym_kOverload; sym_kReintroduce; sym_kStdcall; sym_kCdecl; sym_kCppdecl; sym_kPascal;
   sym_kRegister; sym_kMwpascal]; ACTIONS 3053 [sym_kMessage]; ACTIONS 3056 [sym_kDeprecated];
   ACTIONS 3044 [sym_kExperimental; sym_kPlatform; sym_kUnimplemented; sym_kCvar];
   ACTIONS 3059 [sym_kExport]; ACTIONS 3044 [sym_kFar; sym_kNear; sym_kSafecall; sym_kAssembler;
   sym_kNostackframe; sym_kInterrupt; sym_kNoreturn; sym_kIocheck; sym_kLocal; sym_kHardfloat;
   sym_kSoftfloat; sym_kMs_abi_default; sym_kMs_abi_cdecl; sym_kSaveregisters;
   sym_kSysv_abi_default; sym_kSysv_abi_cdecl; sym_kVectorcall; sym_kVarargs; sym_kWinapi];
   ACTIONS 3062 [sym_kAlias]; ACTIONS 3034 [sym_kAsm; sym_kBegin; sym_kCase; sym_kClass;
   sym_kConst; sym_kConstructor; sym_kDestructor; sym_kExports; sym_kFor; sym_kFunction;
   sym_kGoto; sym_kIf; sym_kInherited]; ACTIONS 1016 [sym_kInline]; ACTIONS 3034 [sym_kLabel;
   sym_kNil; sym_kNot; sym_kProcedure; sym_kProperty; sym_kRaise; sym_kRepeat;
   sym_kResourcestring; sym_kString; sym_kThreadvar; sym_kTry; sym_kType; sym_kUses; sym_kVar;
   sym_kWhile; sym_kWith]].

(** State 714. *)
Definition ts_parse_table_714 : parse_row :=
  [STATE 1204 [sym__procAttribute]; STATE 15235 [sym_procAttribute]; STATE 823 [sym_procExternal;
   aux_sym_declVar_repeat2]; ACTIONS 4478 [anon_sym_SEMI; anon_sym_COMMA];
   ACTIONS 4480 [anon_sym_LBRACK]; ACTIONS 4483 [anon_sym_LPAREN];
   ACTIONS 4478 [aux_sym__literalString_token1; anon_sym_POUND];
   ACTIONS 4483 [aux_sym__literalInt_token1]; ACTIONS 4478 [aux_sym__literalInt_token2;
   aux_sym__literalInt_token3]; ACTIONS 4483 [aux_sym__literalFloat_token1];
   ACTIONS 4478 [aux_sym_ppUsesBlock_token1; aux_sym_ppUsesBlock_token2;
   aux_sym_ppUsesBlock_token3]; ACTIONS 4483 [sym_kAdd; sym_kSub]; ACTIONS 4478 [sym_kAt;
   sym_kTrue; sym_kFalse]; ACTIONS 3 [sym__space]; ACTIONS 5 [sym_ppDirective];
   ACTIONS 3 [sym_comment]; ACTIONS 4478 [sym_ppFragmentExpr; sym__literalStringMultiline;
   sym_identifier]; ACTIONS 4485 [sym_kDefault; sym_kNodefault]; ACTIONS 4488 [sym_kDispId];
   ACTIONS 4478 [sym_kGeneric; sym_kSpecialize; sym_kOperator]; ACTIONS 4491 [sym_kPublic];
   ACTIONS 4485 [sym_kStatic; sym_kVirtual; sym_kAbstract; sym_kDynamic; sym_kOverride;
   sym_kOverload; sym_kReintroduce; sym_kStdcall; sym_kCdecl; sym_kCppdecl; sym_kPascal;
   sym_kRegister; sym_kMwpascal]; ACTIONS 3438 [sym_kExternal]; ACTIONS 4494 [sym_kMessage];
   ACTIONS 4497 [sym_kDeprecated]; ACTIONS 4485 [sym_kExperimental; sym_kPlatform;
   sym_kUnimplemented; sym_kCvar]; ACTIONS 4500 [sym_kExport]; ACTIONS 4485 [sym_kFar; sym_kNear;
   sym_kSafecall; sym_kAssembler; sym_kNostackframe; sym_kInterrupt; sym_kNoreturn; sym_kIocheck;
   sym_kLocal; sym_kHardfloat; sym_kSoftfloat; sym_kMs_abi_default; sym_kMs_abi_cdecl;
   sym_kSaveregisters; sym_kSysv_abi_default; sym_kSysv_abi_cdecl; sym_kVectorcall; sym_kVarargs;
   sym_kWinapi]; ACTIONS 4503 [sym_kAlias]; ACTIONS 4478 [sym_kAsm; sym_kBegin; sym_kCase;
   sym_kClass; sym_kConst; sym_kConstructor; sym_kDestructor; sym_kExports; sym_kFor;
   sym_kFunction; sym_kGoto; sym_kIf; sym_kInherited]; ACTIONS 1016 [sym_kInline];
   ACTIONS 4478 [sym_kLabel; sym_kNil; sym_kNot; sym_kProcedure; sym_kProperty; sym_kRaise;
   sym_kRepeat; sym_kResourcestring; sym_kString; sym_kThreadvar; sym_kTry; sym_kType; sym_kUses;
   sym_kVar; sym_kWhile; sym_kWith]].

(** State 715. *)
Definition ts_parse_table_715 : parse_row :=
  [STATE 1204 [sym__procAttribute]; STATE 15235 [sym_procAttribute]; STATE 825 [sym_procExternal;
   aux_sym_declVar_repeat2]; ACTIONS 4506 [anon_sym_SEMI; anon_sym_COMMA];
   ACTIONS 4508 [anon_sym_LBRACK]; ACTIONS 4511 [anon_sym_LPAREN];
   ACTIONS 4506 [aux_sym__literalString_token1; anon_sym_POUND];
   ACTIONS 4511 [aux_sym__literalInt_token1]; ACTIONS 4506 [aux_sym__literalInt_token2;
   aux_sym__literalInt_token3]; ACTIONS 4511 [aux_sym__literalFloat_token1];
   ACTIONS 4506 [aux_sym_ppUsesBlock_token1; aux_sym_ppUsesBlock_token2;
   aux_sym_ppUsesBlock_token3]; ACTIONS 4511 [sym_kAdd; sym_kSub]; ACTIONS 4506 [sym_kAt;
   sym_kTrue; sym_kFalse]; ACTIONS 3 [sym__space]; ACTIONS 5 [sym_ppDirective];
   ACTIONS 3 [sym_comment]; ACTIONS 4506 [sym_ppFragmentExpr; sym__literalStringMultiline;
   sym_identifier]; ACTIONS 4513 [sym_kDefault; sym_kNodefault]; ACTIONS 4516 [sym_kDispId];
   ACTIONS 4506 [sym_kGeneric; sym_kSpecialize; sym_kOperator]; ACTIONS 4519 [sym_kPublic];
   ACTIONS 4513 [sym_kStatic; sym_kVirtual; sym_kAbstract; sym_kDynamic; sym_kOverride;
   sym_kOverload; sym_kReintroduce; sym_kStdcall; sym_kCdecl; sym_kCppdecl; sym_kPascal;
   sym_kRegister; sym_kMwpascal]; ACTIONS 3438 [sym_kExternal]; ACTIONS 4522 [sym_kMessage];
   ACTIONS 4525 [sym_kDeprecated]; ACTIONS 4513 [sym_kExperimental; sym_kPlatform;
   sym_kUnimplemented; sym_kCvar]; ACTIONS 4528 [sym_kExport]; ACTIONS 4513 [sym_kFar; sym_kNear;
   sym_kSafecall; sym_kAssembler; sym_kNostackframe; sym_kInterrupt; sym_kNoreturn; sym_kIocheck;
   sym_kLocal; sym_kHardfloat; sym_kSoftfloat; sym_kMs_abi_default; sym_kMs_abi_cdecl;
   sym_kSaveregisters; sym_kSysv_abi_default; sym_kSysv_abi_cdecl; sym_kVectorcall; sym_kVarargs;
   sym_kWinapi]; ACTIONS 4531 [sym_kAlias]; ACTIONS 4506 [sym_kAsm; sym_kBegin; sym_kCase;
   sym_kClass; sym_kConst; sym_kConstructor; sym_kDestructor; sym_kExports; sym_kFor;
   sym_kFunction; sym_kGoto; sym_kIf; sym_kInherited]; ACTIONS 1016 [sym_kInline];
   ACTIONS 4506 [sym_kLabel; sym_kNil; sym_kNot; sym_kProcedure; sym_kProperty; sym_kRaise;
   sym_kRepeat; sym_kResourcestring; sym_kString; sym_kThreadvar; sym_kTry; sym_kType; sym_kUses;
   sym_kVar; sym_kWhile; sym_kWith]].

(** State 716. *)
Definition ts_parse_table_716 : parse_row :=
  [STATE 1204 [sym__procAttribute]; STATE 15235 [sym_procAttribute]; STATE 829 [sym_procExternal;
   aux_sym_declVar_repeat2]; ACTIONS 4534 [anon_sym_SEMI; anon_sym_COMMA];
   ACTIONS 4536 [anon_sym_LBRACK]; ACTIONS 4539 [anon_sym_LPAREN];
   ACTIONS 4534 [aux_sym__literalString_token1; anon_sym_POUND];
   ACTIONS 4539 [aux_sym__literalInt_token1]; ACTIONS 4534 [aux_sym__literalInt_token2;
   aux_sym__literalInt_token3]; ACTIONS 4539 [aux_sym__literalFloat_token1];
   ACTIONS 4534 [aux_sym_ppUsesBlock_token1; aux_sym_ppUsesBlock_token2;
   aux_sym_ppUsesBlock_token3]; ACTIONS 4539 [sym_kAdd; sym_kSub]; ACTIONS 4534 [sym_kAt;
   sym_kTrue; sym_kFalse]; ACTIONS 3 [sym__space]; ACTIONS 5 [sym_ppDirective];
   ACTIONS 3 [sym_comment]; ACTIONS 4534 [sym_ppFragmentExpr; sym__literalStringMultiline;
   sym_identifier]; ACTIONS 4541 [sym_kDefault; sym_kNodefault]; ACTIONS 4544 [sym_kDispId];
   ACTIONS 4534 [sym_kGeneric; sym_kSpecialize; sym_kOperator]; ACTIONS 4547 [sym_kPublic];
   ACTIONS 4541 [sym_kStatic; sym_kVirtual; sym_kAbstract; sym_kDynamic; sym_kOverride;
   sym_kOverload; sym_kReintroduce; sym_kStdcall; sym_kCdecl; sym_kCppdecl; sym_kPascal;
   sym_kRegister; sym_kMwpascal]; ACTIONS 3438 [sym_kExternal]; ACTIONS 4550 [sym_kMessage];
   ACTIONS 4553 [sym_kDeprecated]; ACTIONS 4541 [sym_kExperimental; sym_kPlatform;
   sym_kUnimplemented; sym_kCvar]; ACTIONS 4556 [sym_kExport]; ACTIONS 4541 [sym_kFar; sym_kNear;
   sym_kSafecall; sym_kAssembler; sym_kNostackframe; sym_kInterrupt; sym_kNoreturn; sym_kIocheck;
   sym_kLocal; sym_kHardfloat; sym_kSoftfloat; sym_kMs_abi_default; sym_kMs_abi_cdecl;
   sym_kSaveregisters; sym_kSysv_abi_default; sym_kSysv_abi_cdecl; sym_kVectorcall; sym_kVarargs;
   sym_kWinapi]; ACTIONS 4559 [sym_kAlias]; ACTIONS 4534 [sym_kAsm; sym_kBegin; sym_kCase;
   sym_kClass; sym_kConst; sym_kConstructor; sym_kDestructor; sym_kExports; sym_kFor;
   sym_kFunction; sym_kGoto; sym_kIf; sym_kInherited]; ACTIONS 1016 [sym_kInline];
   ACTIONS 4534 [sym_kLabel; sym_kNil; sym_kNot; sym_kProcedure; sym_kProperty; sym_kRaise;
   sym_kRepeat; sym_kResourcestring; sym_kString; sym_kThreadvar; sym_kTry; sym_kType; sym_kUses;
   sym_kVar; sym_kWhile; sym_kWith]].

(** State 717. *)
Definition ts_parse_table_717 : parse_row :=
  [STATE 2921 [sym__ppIf]; STATE 1214 [sym__procAttributeNoExt];
   STATE 1215 [sym__procAttributesPp]; STATE 15691 [sym_procAttribute];
   STATE 761 [aux_sym__declProc_repeat1]; ACTIONS 4562 [anon_sym_SEMI; anon_sym_COMMA];
   ACTIONS 4564 [anon_sym_LBRACK]; ACTIONS 4567 [anon_sym_LPAREN];
   ACTIONS 4562 [aux_sym__literalString_token1; anon_sym_POUND];
   ACTIONS 4567 [aux_sym__literalInt_token1]; ACTIONS 4562 [aux_sym__literalInt_token2;
   aux_sym__literalInt_token3]; ACTIONS 4567 [aux_sym__literalFloat_token1];
   ACTIONS 4569 [aux_sym_ppUsesBlock_token1]; ACTIONS 4562 [aux_sym_ppUsesBlock_token2;
   aux_sym_ppUsesBlock_token3]; ACTIONS 4567 [sym_kAdd; sym_kSub]; ACTIONS 4562 [sym_kAt;
   sym_kTrue; sym_kFalse]; ACTIONS 3 [sym__space]; ACTIONS 5 [sym_ppDirective];
   ACTIONS 3 [sym_comment]; ACTIONS 4562 [sym_ppFragmentExpr; sym__literalStringMultiline;
   sym_identifier]; ACTIONS 4572 [sym_kDefault; sym_kNodefault]; ACTIONS 4575 [sym_kDispId];
   ACTIONS 4562 [sym_kGeneric; sym_kSpecialize; sym_kOperator]; ACTIONS 4578 [sym_kPublic];
   ACTIONS 4572 [sym_kStatic; sym_kVirtual; sym_kAbstract; sym_kDynamic; sym_kOverride;
   sym_kOverload; sym_kReintroduce; sym_kStdcall; sym_kCdecl; sym_kCppdecl; sym_kPascal;
   sym_kRegister; sym_kMwpascal]; ACTIONS 4581 [sym_kMessage]; ACTIONS 4584 [sym_kDeprecated];
   ACTIONS 4572 [sym_kExperimental; sym_kPlatform; sym_kUnimplemented; sym_kCvar];
   ACTIONS 4587 [sym_kExport]; ACTIONS 4572 [sym_kFar; sym_kNear; sym_kSafecall; sym_kAssembler;
   sym_kNostackframe; sym_kInterrupt; sym_kNoreturn; sym_kIocheck; sym_kLocal; sym_kHardfloat;
   sym_kSoftfloat; sym_kMs_abi_default; sym_kMs_abi_cdecl; sym_kSaveregisters;
   sym_kSysv_abi_default; sym_kSysv_abi_cdecl; sym_kVectorcall; sym_kVarargs; sym_kWinapi];
   ACTIONS 4590 [sym_kAlias]; ACTIONS 4562 [sym_kAsm; sym_kBegin; sym_kCase; sym_kClass;
   sym_kConst; sym_kConstructor; sym_kDestructor; sym_kExports; sym_kFor; sym_kFunction;
   sym_kGoto; sym_kIf; sym_kInherited]; ACTIONS 1016 [sym_kInline]; ACTIONS 4562 [sym_kLabel;
   sym_kNil; sym_kNot; sym_kProcedure; sym_kProperty; sym_kRaise; sym_kRepeat;
   sym_kResourcestring; sym_kString; sym_kThreadvar; sym_kTry; sym_kType; sym_kUses; sym_kVar;
   sym_kWhile; sym_kWith]].

(** State 718. *)
Definition ts_parse_table_718 : parse_row :=
  [STATE 1204 [sym__procAttribute]; STATE 15235 [sym_procAttribute]; STATE 836 [sym_procExternal;
   aux_sym_declVar_repeat2]; ACTIONS 4593 [anon_sym_SEMI; anon_sym_COMMA];
   ACTIONS 4595 [anon_sym_LBRACK]; ACTIONS 4598 [anon_sym_LPAREN];
   ACTIONS 4593 [aux_sym__literalString_token1; anon_sym_POUND];
   ACTIONS 4598 [aux_sym__literalInt_token1]; ACTIONS 4593 [aux_sym__literalInt_token2;
   aux_sym__literalInt_token3]; ACTIONS 4598 [aux_sym__literalFloat_token1];
   ACTIONS 4593 [aux_sym_ppUsesBlock_token1; aux_sym_ppUsesBlock_token2;
   aux_sym_ppUsesBlock_token3]; ACTIONS 4598 [sym_kAdd; sym_kSub]; ACTIONS 4593 [sym_kAt;
   sym_kTrue; sym_kFalse]; ACTIONS 3 [sym__space]; ACTIONS 5 [sym_ppDirective];
   ACTIONS 3 [sym_comment]; ACTIONS 4593 [sym_ppFragmentExpr; sym__literalStringMultiline;
   sym_identifier]; ACTIONS 4600 [sym_kDefault; sym_kNodefault]; ACTIONS 4603 [sym_kDispId];
   ACTIONS 4593 [sym_kGeneric; sym_kSpecialize; sym_kOperator]; ACTIONS 4606 [sym_kPublic];
   ACTIONS 4600 [sym_kStatic; sym_kVirtual; sym_kAbstract; sym_kDynamic; sym_kOverride;
   sym_kOverload; sym_kReintroduce; sym_kStdcall; sym_kCdecl; sym_kCppdecl; sym_kPascal;
   sym_kRegister; sym_kMwpascal]; ACTIONS 3438 [sym_kExternal]; ACTIONS 4609 [sym_kMessage];
   ACTIONS 4612 [sym_kDeprecated]; ACTIONS 4600 [sym_kExperimental; sym_kPlatform;
   sym_kUnimplemented; sym_kCvar]; ACTIONS 4615 [sym_kExport]; ACTIONS 4600 [sym_kFar; sym_kNear;
   sym_kSafecall; sym_kAssembler; sym_kNostackframe; sym_kInterrupt; sym_kNoreturn; sym_kIocheck;
   sym_kLocal; sym_kHardfloat; sym_kSoftfloat; sym_kMs_abi_default; sym_kMs_abi_cdecl;
   sym_kSaveregisters; sym_kSysv_abi_default; sym_kSysv_abi_cdecl; sym_kVectorcall; sym_kVarargs;
   sym_kWinapi]; ACTIONS 4618 [sym_kAlias]; ACTIONS 4593 [sym_kAsm; sym_kBegin; sym_kCase;
   sym_kClass; sym_kConst; sym_kConstructor; sym_kDestructor; sym_kExports; sym_kFor;
   sym_kFunction; sym_kGoto; sym_kIf; sym_kInherited]; ACTIONS 1016 [sym_kInline];
   ACTIONS 4593 [sym_kLabel; sym_kNil; sym_kNot; sym_kProcedure; sym_kProperty; sym_kRaise;
   sym_kRepeat; sym_kResourcestring; sym_kString; sym_kThreadvar; sym_kTry; sym_kType; sym_kUses;
   sym_kVar; sym_kWhile; sym_kWith]].

(** State 719. *)
Definition ts_parse_table_719 : parse_row :=
  [STATE 17 [sym__ppIf]; STATE 742 [sym_ppBlock; sym_declConst];
   STATE 15416 [sym_rttiAttributes]; STATE 742 [aux_sym_declConsts_repeat1];
   STATE 12776 [aux_sym_rttiAttributes_repeat2]; ACTIONS 4621 [anon_sym_SEMI; anon_sym_COMMA];
   ACTIONS 4623 [anon_sym_LBRACK]; ACTIONS 4626 [anon_sym_LPAREN];
   ACTIONS 4621 [aux_sym__literalString_token1; anon_sym_POUND];
   ACTIONS 4626 [aux_sym__literalInt_token1]; ACTIONS 4621 [aux_sym__literalInt_token2;
   aux_sym__literalInt_token3]; ACTIONS 4626 [aux_sym__literalFloat_token1];
   ACTIONS 4628 [aux_sym_ppUsesBlock_token1]; ACTIONS 4621 [aux_sym_ppUsesBlock_token2;
   aux_sym_ppUsesBlock_token3]; ACTIONS 4626 [sym_kAdd; sym_kSub]; ACTIONS 4621 [sym_kAt;
   sym_kTrue; sym_kFalse]; ACTIONS 3 [sym__space]; ACTIONS 5 [sym_ppDirective];
   ACTIONS 3 [sym_comment]; ACTIONS 4621 [sym_ppFragmentExpr; sym__literalStringMultiline];
   ACTIONS 4631 [sym_identifier]; ACTIONS 4621 [sym_kDefault; sym_kNodefault; sym_kDispId;
   sym_kGeneric; sym_kSpecialize; sym_kOperator; sym_kPublic; sym_kStatic; sym_kVirtual;
   sym_kAbstract; sym_kDynamic; sym_kOverride; sym_kOverload; sym_kReintroduce; sym_kStdcall;
   sym_kCdecl; sym_kCppdecl; sym_kPascal; sym_kRegister; sym_kMwpascal; sym_kMessage;
   sym_kDeprecated; sym_kExperimental; sym_kPlatform; sym_kUnimplemented; sym_kCvar; sym_kExport;
   sym_kFar; sym_kNear; sym_kSafecall; sym_kAssembler; sym_kNostackframe; sym_kInterrupt;
   sym_kNoreturn; sym_kIocheck; sym_kLocal; sym_kHardfloat; sym_kSoftfloat; sym_kMs_abi_default;
   sym_kMs_abi_cdecl; sym_kSaveregisters; sym_kSysv_abi_default; sym_kSysv_abi_cdecl;
   sym_kVectorcall; sym_kVarargs; sym_kWinapi; sym_kAlias; sym_kAsm; sym_kBegin; sym_kCase;
   sym_kClass; sym_kConst; sym_kConstructor; sym_kDestructor; sym_kExports; sym_kFor;
   sym_kFunction; sym_kGoto; sym_kIf; sym_kInherited; sym_kLabel; sym_kNil; sym_kNot;
   sym_kProcedure; sym_kProperty; sym_kRaise; sym_kRepeat; sym_kResourcestring; sym_kString;
   sym_kThreadvar; sym_kTry; sym_kType; sym_kUses; sym_kVar; sym_kWhile; sym_kWith]].

(** State 720. *)
Definition ts_parse_table_720 : parse_row :=
  [STATE 2921 [sym__ppIf]; STATE 1214 [sym__procAttributeNoExt];
   STATE 1215 [sym__procAttributesPp]; STATE 15691 [sym_procAttribute];
   STATE 777 [aux_sym__declProc_repeat1]; ACTIONS 4634 [anon_sym_SEMI; anon_sym_COMMA];
   ACTIONS 4636 [anon_sym_LBRACK]; ACTIONS 4639 [anon_sym_LPAREN];
   ACTIONS 4634 [aux_sym__literalString_token1; anon_sym_POUND];
   ACTIONS 4639 [aux_sym__literalInt_token1]; ACTIONS 4634 [aux_sym__literalInt_token2;
   aux_sym__literalInt_token3]; ACTIONS 4639 [aux_sym__literalFloat_token1];
   ACTIONS 4641 [aux_sym_ppUsesBlock_token1]; ACTIONS 4634 [aux_sym_ppUsesBlock_token2;
   aux_sym_ppUsesBlock_token3]; ACTIONS 4639 [sym_kAdd; sym_kSub]; ACTIONS 4634 [sym_kAt;
   sym_kTrue; sym_kFalse]; ACTIONS 3 [sym__space]; ACTIONS 5 [sym_ppDirective];
   ACTIONS 3 [sym_comment]; ACTIONS 4634 [sym_ppFragmentExpr; sym__literalStringMultiline;
   sym_identifier]; ACTIONS 4644 [sym_kDefault; sym_kNodefault]; ACTIONS 4647 [sym_kDispId];
   ACTIONS 4634 [sym_kGeneric; sym_kSpecialize; sym_kOperator]; ACTIONS 4650 [sym_kPublic];
   ACTIONS 4644 [sym_kStatic; sym_kVirtual; sym_kAbstract; sym_kDynamic; sym_kOverride;
   sym_kOverload; sym_kReintroduce; sym_kStdcall; sym_kCdecl; sym_kCppdecl; sym_kPascal;
   sym_kRegister; sym_kMwpascal]; ACTIONS 4653 [sym_kMessage]; ACTIONS 4656 [sym_kDeprecated];
   ACTIONS 4644 [sym_kExperimental; sym_kPlatform; sym_kUnimplemented; sym_kCvar];
   ACTIONS 4659 [sym_kExport]; ACTIONS 4644 [sym_kFar; sym_kNear; sym_kSafecall; sym_kAssembler;
   sym_kNostackframe; sym_kInterrupt; sym_kNoreturn; sym_kIocheck; sym_kLocal; sym_kHardfloat;
   sym_kSoftfloat; sym_kMs_abi_default; sym_kMs_abi_cdecl; sym_kSaveregisters;
   sym_kSysv_abi_default; sym_kSysv_abi_cdecl; sym_kVectorcall; sym_kVarargs; sym_kWinapi];
   ACTIONS 4662 [sym_kAlias]; ACTIONS 4634 [sym_kAsm; sym_kBegin; sym_kCase; sym_kClass;
   sym_kConst; sym_kConstructor; sym_kDestructor; sym_kExports; sym_kFor; sym_kFunction;
   sym_kGoto; sym_kIf; sym_kInherited]; ACTIONS 1016 [sym_kInline]; ACTIONS 4634 [sym_kLabel;
   sym_kNil; sym_kNot; sym_kProcedure; sym_kProperty; sym_kRaise; sym_kRepeat;
   sym_kResourcestring; sym_kString; sym_kThreadvar; sym_kTry; sym_kType; sym_kUses; sym_kVar;
   sym_kWhile; sym_kWith]].

(** State 721. *)
Definition ts_parse_table_721 : parse_row :=
  [STATE 2921 [sym__ppIf]; STATE 1214 [sym__procAttributeNoExt];
   STATE 1215 [sym__procAttributesPp]; STATE 15691 [sym_procAttribute];
   STATE 777 [aux_sym__declProc_repeat1]; ACTIONS 2396 [anon_sym_SEMI; anon_sym_COMMA];
   ACTIONS 4665 [anon_sym_LBRACK]; ACTIONS 2401 [anon_sym_LPAREN];
   ACTIONS 2396 [aux_sym__literalString_token1; anon_sym_POUND];
   ACTIONS 2401 [aux_sym__literalInt_token1]; ACTIONS 2396 [aux_sym__literalInt_token2;
   aux_sym__literalInt_token3]; ACTIONS 2401 [aux_sym__literalFloat_token1];
   ACTIONS 2403 [aux_sym_ppUsesBlock_token1]; ACTIONS 2396 [aux_sym_ppUsesBlock_token2;
   aux_sym_ppUsesBlock_token3]; ACTIONS 2401 [sym_kAdd; sym_kSub]; ACTIONS 2396 [sym_kAt;
   sym_kTrue; sym_kFalse]; ACTIONS 3 [sym__space]; ACTIONS 5 [sym_ppDirective];
   ACTIONS 3 [sym_comment]; ACTIONS 2396 [sym_ppFragmentExpr; sym__literalStringMultiline;
   sym_identifier]; ACTIONS 2406 [sym_kDefault; sym_kNodefault]; ACTIONS 2409 [sym_kDispId];
   ACTIONS 2396 [sym_kGeneric; sym_kSpecialize; sym_kOperator]; ACTIONS 2412 [sym_kPublic];
   ACTIONS 2406 [sym_kStatic; sym_kVirtual; sym_kAbstract; sym_kDynamic; sym_kOverride;
   sym_kOverload; sym_kReintroduce; sym_kStdcall; sym_kCdecl; sym_kCppdecl; sym_kPascal;
   sym_kRegister; sym_kMwpascal]; ACTIONS 2415 [sym_kMessage]; ACTIONS 2418 [sym_kDeprecated];
   ACTIONS 2406 [sym_kExperimental; sym_kPlatform; sym_kUnimplemented; sym_kCvar];
   ACTIONS 2421 [sym_kExport]; ACTIONS 2406 [sym_kFar; sym_kNear; sym_kSafecall; sym_kAssembler;
   sym_kNostackframe; sym_kInterrupt; sym_kNoreturn; sym_kIocheck; sym_kLocal; sym_kHardfloat;
   sym_kSoftfloat; sym_kMs_abi_default; sym_kMs_abi_cdecl; sym_kSaveregisters;
   sym_kSysv_abi_default; sym_kSysv_abi_cdecl; sym_kVectorcall; sym_kVarargs; sym_kWinapi];
   ACTIONS 2424 [sym_kAlias]; ACTIONS 2396 [sym_kAsm; sym_kBegin; sym_kCase; sym_kClass;
   sym_kConst; sym_kConstructor; sym_kDestructor; sym_kExports; sym_kFor; sym_kFunction;
   sym_kGoto; sym_kIf; sym_kInherited]; ACTIONS 1016 [sym_kInline]; ACTIONS 2396 [sym_kLabel;
   sym_kNil; sym_kNot; sym_kProcedure; sym_kProperty; sym_kRaise; sym_kRepeat;
   sym_kResourcestring; sym_kString; sym_kThreadvar; sym_kTry; sym_kType; sym_kUses; sym_kVar;
   sym_kWhile; sym_kWith]].

(** State 722. *)
Definition ts_parse_table_722 : parse_row :=
  [STATE 2921 [sym__ppIf]; STATE 1214 [sym__procAttributeNoExt];
   STATE 1215 [sym__procAttributesPp]; STATE 15691 [sym_procAttribute];
   STATE 777 [aux_sym__declProc_repeat1]; ACTIONS 3067 [anon_sym_SEMI; anon_sym_COMMA];
   ACTIONS 4668 [anon_sym_LBRACK]; ACTIONS 3072 [anon_sym_LPAREN];
   ACTIONS 3067 [aux_sym__literalString_token1; anon_sym_POUND];
   ACTIONS 3072 [aux_sym__literalInt_token1]; ACTIONS 3067 [aux_sym__literalInt_token2;
   aux_sym__literalInt_token3]; ACTIONS 3072 [aux_sym__literalFloat_token1];
   ACTIONS 3074 [aux_sym_ppUsesBlock_token1]; ACTIONS 3067 [aux_sym_ppUsesBlock_token2;
   aux_sym_ppUsesBlock_token3]; ACTIONS 3072 [sym_kAdd; sym_kSub]; ACTIONS 3067 [sym_kAt;
   sym_kTrue; sym_kFalse]; ACTIONS 3 [sym__space]; ACTIONS 5 [sym_ppDirective];
   ACTIONS 3 [sym_comment]; ACTIONS 3067 [sym_ppFragmentExpr; sym__literalStringMultiline;
   sym_identifier]; ACTIONS 3077 [sym_kDefault; sym_kNodefault]; ACTIONS 3080 [sym_kDispId];
   ACTIONS 3067 [sym_kGeneric; sym_kSpecialize; sym_kOperator]; ACTIONS 3083 [sym_kPublic];
   ACTIONS 3077 [sym_kStatic; sym_kVirtual; sym_kAbstract; sym_kDynamic; sym_kOverride;
   sym_kOverload; sym_kReintroduce; sym_kStdcall; sym_kCdecl; sym_kCppdecl; sym_kPascal;
   sym_kRegister; sym_kMwpascal]; ACTIONS 3086 [sym_kMessage]; ACTIONS 3089 [sym_kDeprecated];
   ACTIONS 3077 [sym_kExperimental; sym_kPlatform; sym_kUnimplemented; sym_kCvar];
   ACTIONS 3092 [sym_kExport]; ACTIONS 3077 [sym_kFar; sym_kNear; sym_kSafecall; sym_kAssembler;
   sym_kNostackframe; sym_kInterrupt; sym_kNoreturn; sym_kIocheck; sym_kLocal; sym_kHardfloat;
   sym_kSoftfloat; sym_kMs_abi_default; sym_kMs_abi_cdecl; sym_kSaveregisters;
   sym_kSysv_abi_default; sym_kSysv_abi_cdecl; sym_kVectorcall; sym_kVarargs; sym_kWinapi];
   ACTIONS 3095 [sym_kAlias]; ACTIONS 3067 [sym_kAsm; sym_kBegin; sym_kCase; sym_kClass;
   sym_kConst; sym_kConstructor; sym_kDestructor; sym_kExports; sym_kFor; sym_kFunction;
   sym_kGoto; sym_kIf; sym_kInherited]; ACTIONS 1016 [sym_kInline]; ACTIONS 3067 [sym_kLabel;
   sym_kNil; sym_kNot; sym_kProcedure; sym_kProperty; sym_kRaise; sym_kRepeat;
   sym_kResourcestring; sym_kString; sym_kThreadvar; sym_kTry; sym_kType; sym_kUses; sym_kVar;
   sym_kWhile; sym_kWith]].

(** State 723. *)
Definition ts_parse_table_723 : parse_row :=
  [STATE 2921 [sym__ppIf]; STATE 1214 [sym__procAttributeNoExt];
   STATE 1215 [sym__procAttributesPp]; STATE 15691 [sym_procAttribute];
   STATE 705 [aux_sym__declProc_repeat1]; ACTIONS 2479 [anon_sym_SEMI; anon_sym_COMMA];
   ACTIONS 4671 [anon_sym_LBRACK]; ACTIONS 2484 [anon_sym_LPAREN];
   ACTIONS 2479 [aux_sym__literalString_token1; anon_sym_POUND];
   ACTIONS 2484 [aux_sym__literalInt_token1]; ACTIONS 2479 [aux_sym__literalInt_token2;
   aux_sym__literalInt_token3]; ACTIONS 2484 [aux_sym__literalFloat_token1];
   ACTIONS 2486 [aux_sym_ppUsesBlock_token1]; ACTIONS 2479 [aux_sym_ppUsesBlock_token2;
   aux_sym_ppUsesBlock_token3]; ACTIONS 2484 [sym_kAdd; sym_kSub]; ACTIONS 2479 [sym_kAt;
   sym_kTrue; sym_kFalse]; ACTIONS 3 [sym__space]; ACTIONS 5 [sym_ppDirective];
   ACTIONS 3 [sym_comment]; ACTIONS 2479 [sym_ppFragmentExpr; sym__literalStringMultiline;
   sym_identifier]; ACTIONS 2489 [sym_kDefault; sym_kNodefault]; ACTIONS 2492 [sym_kDispId];
   ACTIONS 2479 [sym_kGeneric; sym_kSpecialize; sym_kOperator]; ACTIONS 2495 [sym_kPublic];
   ACTIONS 2489 [sym_kStatic; sym_kVirtual; sym_kAbstract; sym_kDynamic; sym_kOverride;
   sym_kOverload; sym_kReintroduce; sym_kStdcall; sym_kCdecl; sym_kCppdecl; sym_kPascal;
   sym_kRegister; sym_kMwpascal]; ACTIONS 2498 [sym_kMessage]; ACTIONS 2501 [sym_kDeprecated];
   ACTIONS 2489 [sym_kExperimental; sym_kPlatform; sym_kUnimplemented; sym_kCvar];
   ACTIONS 2504 [sym_kExport]; ACTIONS 2489 [sym_kFar; sym_kNear; sym_kSafecall; sym_kAssembler;
   sym_kNostackframe; sym_kInterrupt; sym_kNoreturn; sym_kIocheck; sym_kLocal; sym_kHardfloat;
   sym_kSoftfloat; sym_kMs_abi_default; sym_kMs_abi_cdecl; sym_kSaveregisters;
   sym_kSysv_abi_default; sym_kSysv_abi_cdecl; sym_kVectorcall; sym_kVarargs; sym_kWinapi];
   ACTIONS 2507 [sym_kAlias]; ACTIONS 2479 [sym_kAsm; sym_kBegin; sym_kCase; sym_kClass;
   sym_kConst; sym_kConstructor; sym_kDestructor; sym_kExports; sym_kFor; sym_kFunction;
   sym_kGoto; sym_kIf; sym_kInherited]; ACTIONS 1016 [sym_kInline]; ACTIONS 2479 [sym_kLabel;
   sym_kNil; sym_kNot; sym_kProcedure; sym_kProperty; sym_kRaise; sym_kRepeat;
   sym_kResourcestring; sym_kString; sym_kThreadvar; sym_kTry; sym_kType; sym_kUses; sym_kVar;
   sym_kWhile; sym_kWith]].

(** State 724. *)
Definition ts_parse_table_724 : parse_row :=
  [STATE 1204 [sym__procAttribute]; STATE 15235 [sym_procAttribute]; STATE 817 [sym_procExternal;
   aux_sym_declVar_repeat2]; ACTIONS 4674 [anon_sym_SEMI; anon_sym_COMMA];
   ACTIONS 4676 [anon_sym_LBRACK]; ACTIONS 4679 [anon_sym_LPAREN];
   ACTIONS 4674 [aux_sym__literalString_token1; anon_sym_POUND];
   ACTIONS 4679 [aux_sym__literalInt_token1]; ACTIONS 4674 [aux_sym__literalInt_token2;
   aux_sym__literalInt_token3]; ACTIONS 4679 [aux_sym__literalFloat_token1];
   ACTIONS 4674 [aux_sym_ppUsesBlock_token1; aux_sym_ppUsesBlock_token2;
   aux_sym_ppUsesBlock_token3]; ACTIONS 4679 [sym_kAdd; sym_kSub]; ACTIONS 4674 [sym_kAt;
   sym_kTrue; sym_kFalse]; ACTIONS 3 [sym__space]; ACTIONS 5 [sym_ppDirective];
   ACTIONS 3 [sym_comment]; ACTIONS 4674 [sym_ppFragmentExpr; sym__literalStringMultiline;
   sym_identifier]; ACTIONS 4681 [sym_kDefault; sym_kNodefault]; ACTIONS 4684 [sym_kDispId];
   ACTIONS 4674 [sym_kGeneric; sym_kSpecialize; sym_kOperator]; ACTIONS 4687 [sym_kPublic];
   ACTIONS 4681 [sym_kStatic; sym_kVirtual; sym_kAbstract; sym_kDynamic; sym_kOverride;
   sym_kOverload; sym_kReintroduce; sym_kStdcall; sym_kCdecl; sym_kCppdecl; sym_kPascal;
   sym_kRegister; sym_kMwpascal]; ACTIONS 3438 [sym_kExternal]; ACTIONS 4690 [sym_kMessage];
   ACTIONS 4693 [sym_kDeprecated]; ACTIONS 4681 [sym_kExperimental; sym_kPlatform;
   sym_kUnimplemented; sym_kCvar]; ACTIONS 4696 [sym_kExport]; ACTIONS 4681 [sym_kFar; sym_kNear;
   sym_kSafecall; sym_kAssembler; sym_kNostackframe; sym_kInterrupt; sym_kNoreturn; sym_kIocheck;
   sym_kLocal; sym_kHardfloat; sym_kSoftfloat; sym_kMs_abi_default; sym_kMs_abi_cdecl;
   sym_kSaveregisters; sym_kSysv_abi_default; sym_kSysv_abi_cdecl; sym_kVectorcall; sym_kVarargs;
   sym_kWinapi]; ACTIONS 4699 [sym_kAlias]; ACTIONS 4674 [sym_kAsm; sym_kBegin; sym_kCase;
   sym_kClass; sym_kConst; sym_kConstructor; sym_kDestructor; sym_kExports; sym_kFor;
   sym_kFunction; sym_kGoto; sym_kIf; sym_kInherited]; ACTIONS 1016 [sym_kInline];
   ACTIONS 4674 [sym_kLabel; sym_kNil; sym_kNot; sym_kProcedure; sym_kProperty; sym_kRaise;
   sym_kRepeat; sym_kResourcestring; sym_kString; sym_kThreadvar; sym_kTry; sym_kType; sym_kUses;
   sym_kVar; sym_kWhile; sym_kWith]].

(** State 725. *)
Definition ts_parse_table_725 : parse_row :=
  [STATE 2921 [sym__ppIf]; STATE 1214 [sym__procAttributeNoExt];
   STATE 1215 [sym__procAttributesPp]; STATE 15691 [sym_procAttribute];
   STATE 790 [aux_sym__declProc_repeat1]; ACTIONS 4702 [anon_sym_SEMI; anon_sym_COMMA];
   ACTIONS 4704 [anon_sym_LBRACK]; ACTIONS 4707 [anon_sym_LPAREN];
   ACTIONS 4702 [aux_sym__literalString_token1; anon_sym_POUND];
   ACTIONS 4707 [aux_sym__literalInt_token1]; ACTIONS 4702 [aux_sym__literalInt_token2;
   aux_sym__literalInt_token3]; ACTIONS 4707 [aux_sym__literalFloat_token1];
   ACTIONS 4709 [aux_sym_ppUsesBlock_token1]; ACTIONS 4702 [aux_sym_ppUsesBlock_token2;
   aux_sym_ppUsesBlock_token3]; ACTIONS 4707 [sym_kAdd; sym_kSub]; ACTIONS 4702 [sym_kAt;
   sym_kTrue; sym_kFalse]; ACTIONS 3 [sym__space]; ACTIONS 5 [sym_ppDirective];
   ACTIONS 3 [sym_comment]; ACTIONS 4702 [sym_ppFragmentExpr; sym__literalStringMultiline;
   sym_identifier]; ACTIONS 4712 [sym_kDefault; sym_kNodefault]; ACTIONS 4715 [sym_kDispId];
   ACTIONS 4702 [sym_kGeneric; sym_kSpecialize; sym_kOperator]; ACTIONS 4718 [sym_kPublic];
   ACTIONS 4712 [sym_kStatic; sym_kVirtual; sym_kAbstract; sym_kDynamic; sym_kOverride;
   sym_kOverload; sym_kReintroduce; sym_kStdcall; sym_kCdecl; sym_kCppdecl; sym_kPascal;
   sym_kRegister; sym_kMwpascal]; ACTIONS 4721 [sym_kMessage]; ACTIONS 4724 [sym_kDeprecated];
   ACTIONS 4712 [sym_kExperimental; sym_kPlatform; sym_kUnimplemented; sym_kCvar];
   ACTIONS 4727 [sym_kExport]; ACTIONS 4712 [sym_kFar; sym_kNear; sym_kSafecall; sym_kAssembler;
   sym_kNostackframe; sym_kInterrupt; sym_kNoreturn; sym_kIocheck; sym_kLocal; sym_kHardfloat;
   sym_kSoftfloat; sym_kMs_abi_default; sym_kMs_abi_cdecl; sym_kSaveregisters;
   sym_kSysv_abi_default; sym_kSysv_abi_cdecl; sym_kVectorcall; sym_kVarargs; sym_kWinapi];
   ACTIONS 4730 [sym_kAlias]; ACTIONS 4702 [sym_kAsm; sym_kBegin; sym_kCase; sym_kClass;
   sym_kConst; sym_kConstructor; sym_kDestructor; sym_kExports; sym_kFor; sym_kFunction;
   sym_kGoto; sym_kIf; sym_kInherited]; ACTIONS 1016 [sym_kInline]; ACTIONS 4702 [sym_kLabel;
   sym_kNil; sym_kNot; sym_kProcedure; sym_kProperty; sym_kRaise; sym_kRepeat;
   sym_kResourcestring; sym_kString; sym_kThreadvar; sym_kTry; sym_kType; sym_kUses; sym_kVar;
   sym_kWhile; sym_kWith]].

(** State 726. *)
Definition ts_parse_table_726 : parse_row :=
  [STATE 1204 [sym__procAttribute]; STATE 15235 [sym_procAttribute]; STATE 817 [sym_procExternal;
   aux_sym_declVar_repeat2]; ACTIONS 4733 [anon_sym_SEMI; anon_sym_COMMA];
   ACTIONS 4735 [anon_sym_LBRACK]; ACTIONS 4738 [anon_sym_LPAREN];
   ACTIONS 4733 [aux_sym__literalString_token1; anon_sym_POUND];
   ACTIONS 4738 [aux_sym__literalInt_token1]; ACTIONS 4733 [aux_sym__literalInt_token2;
   aux_sym__literalInt_token3]; ACTIONS 4738 [aux_sym__literalFloat_token1];
   ACTIONS 4733 [aux_sym_ppUsesBlock_token1; aux_sym_ppUsesBlock_token2;
   aux_sym_ppUsesBlock_token3]; ACTIONS 4738 [sym_kAdd; sym_kSub]; ACTIONS 4733 [sym_kAt;
   sym_kTrue; sym_kFalse]; ACTIONS 3 [sym__space]; ACTIONS 5 [sym_ppDirective];
   ACTIONS 3 [sym_comment]; ACTIONS 4733 [sym_ppFragmentExpr; sym__literalStringMultiline;
   sym_identifier]; ACTIONS 4740 [sym_kDefault; sym_kNodefault]; ACTIONS 4743 [sym_kDispId];
   ACTIONS 4733 [sym_kGeneric; sym_kSpecialize; sym_kOperator]; ACTIONS 4746 [sym_kPublic];
   ACTIONS 4740 [sym_kStatic; sym_kVirtual; sym_kAbstract; sym_kDynamic; sym_kOverride;
   sym_kOverload; sym_kReintroduce; sym_kStdcall; sym_kCdecl; sym_kCppdecl; sym_kPascal;
   sym_kRegister; sym_kMwpascal]; ACTIONS 3438 [sym_kExternal]; ACTIONS 4749 [sym_kMessage];
   ACTIONS 4752 [sym_kDeprecated]; ACTIONS 4740 [sym_kExperimental; sym_kPlatform;
   sym_kUnimplemented; sym_kCvar]; ACTIONS 4755 [sym_kExport]; ACTIONS 4740 [sym_kFar; sym_kNear;
   sym_kSafecall; sym_kAssembler; sym_kNostackframe; sym_kInterrupt; sym_kNoreturn; sym_kIocheck;
   sym_kLocal; sym_kHardfloat; sym_kSoftfloat; sym_kMs_abi_default; sym_kMs_abi_cdecl;
   sym_kSaveregisters; sym_kSysv_abi_default; sym_kSysv_abi_cdecl; sym_kVectorcall; sym_kVarargs;
   sym_kWinapi]; ACTIONS 4758 [sym_kAlias]; ACTIONS 4733 [sym_kAsm; sym_kBegin; sym_kCase;
   sym_kClass; sym_kConst; sym_kConstructor; sym_kDestructor; sym_kExports; sym_kFor;
   sym_kFunction; sym_kGoto; sym_kIf; sym_kInherited]; ACTIONS 1016 [sym_kInline];
   ACTIONS 4733 [sym_kLabel; sym_kNil; sym_kNot; sym_kProcedure; sym_kProperty; sym_kRaise;
   sym_kRepeat; sym_kResourcestring; sym_kString; sym_kThreadvar; sym_kTry; sym_kType; sym_kUses;
   sym_kVar; sym_kWhile; sym_kWith]].

(** State 727. *)
Definition ts_parse_table_727 : parse_row :=
  [STATE 1204 [sym__procAttribute]; STATE 15235 [sym_procAttribute]; STATE 840 [sym_procExternal;
   aux_sym_declVar_repeat2]; ACTIONS 4761 [anon_sym_SEMI; anon_sym_COMMA];
   ACTIONS 4763 [anon_sym_LBRACK]; ACTIONS 4766 [anon_sym_LPAREN];
   ACTIONS 4761 [aux_sym__literalString_token1; anon_sym_POUND];
   ACTIONS 4766 [aux_sym__literalInt_token1]; ACTIONS 4761 [aux_sym__literalInt_token2;
   aux_sym__literalInt_token3]; ACTIONS 4766 [aux_sym__literalFloat_token1];
   ACTIONS 4761 [aux_sym_ppUsesBlock_token1; aux_sym_ppUsesBlock_token2;
   aux_sym_ppUsesBlock_token3]; ACTIONS 4766 [sym_kAdd; sym_kSub]; ACTIONS 4761 [sym_kAt;
   sym_kTrue; sym_kFalse]; ACTIONS 3 [sym__space]; ACTIONS 5 [sym_ppDirective];
   ACTIONS 3 [sym_comment]; ACTIONS 4761 [sym_ppFragmentExpr; sym__literalStringMultiline;
   sym_identifier]; ACTIONS 4768 [sym_kDefault; sym_kNodefault]; ACTIONS 4771 [sym_kDispId];
   ACTIONS 4761 [sym_kGeneric; sym_kSpecialize; sym_kOperator]; ACTIONS 4774 [sym_kPublic];
   ACTIONS 4768 [sym_kStatic; sym_kVirtual; sym_kAbstract; sym_kDynamic; sym_kOverride;
   sym_kOverload; sym_kReintroduce; sym_kStdcall; sym_kCdecl; sym_kCppdecl; sym_kPascal;
   sym_kRegister; sym_kMwpascal]; ACTIONS 3438 [sym_kExternal]; ACTIONS 4777 [sym_kMessage];
   ACTIONS 4780 [sym_kDeprecated]; ACTIONS 4768 [sym_kExperimental; sym_kPlatform;
   sym_kUnimplemented; sym_kCvar]; ACTIONS 4783 [sym_kExport]; ACTIONS 4768 [sym_kFar; sym_kNear;
   sym_kSafecall; sym_kAssembler; sym_kNostackframe; sym_kInterrupt; sym_kNoreturn; sym_kIocheck;
   sym_kLocal; sym_kHardfloat; sym_kSoftfloat; sym_kMs_abi_default; sym_kMs_abi_cdecl;
   sym_kSaveregisters; sym_kSysv_abi_default; sym_kSysv_abi_cdecl; sym_kVectorcall; sym_kVarargs;
   sym_kWinapi]; ACTIONS 4786 [sym_kAlias]; ACTIONS 4761 [sym_kAsm; sym_kBegin; sym_kCase;
   sym_kClass; sym_kConst; sym_kConstructor; sym_kDestructor; sym_kExports; sym_kFor;
   sym_kFunction; sym_kGoto; sym_kIf; sym_kInherited]; ACTIONS 1016 [sym_kInline];
   ACTIONS 4761 [sym_kLabel; sym_kNil; sym_kNot; sym_kProcedure; sym_kProperty; sym_kRaise;
   sym_kRepeat; sym_kResourcestring; sym_kString; sym_kThreadvar; sym_kTry; sym_kType; sym_kUses;
   sym_kVar; sym_kWhile; sym_kWith]].

(** State 728. *)
Definition ts_parse_table_728 : parse_row :=
  [STATE 2921 [sym__ppIf]; STATE 1214 [sym__procAttributeNoExt];
   STATE 1215 [sym__procAttributesPp]; STATE 15691 [sym_procAttribute];
   STATE 696 [aux_sym__declProc_repeat1]; ACTIONS 4789 [anon_sym_SEMI; anon_sym_COMMA];
   ACTIONS 4791 [anon_sym_LBRACK]; ACTIONS 4794 [anon_sym_LPAREN];
   ACTIONS 4789 [aux_sym__literalString_token1; anon_sym_POUND];
   ACTIONS 4794 [aux_sym__literalInt_token1]; ACTIONS 4789 [aux_sym__literalInt_token2;
   aux_sym__literalInt_token3]; ACTIONS 4794 [aux_sym__literalFloat_token1];
   ACTIONS 4796 [aux_sym_ppUsesBlock_token1]; ACTIONS 4789 [aux_sym_ppUsesBlock_token2;
   aux_sym_ppUsesBlock_token3]; ACTIONS 4794 [sym_kAdd; sym_kSub]; ACTIONS 4789 [sym_kAt;
   sym_kTrue; sym_kFalse]; ACTIONS 3 [sym__space]; ACTIONS 5 [sym_ppDirective];
   ACTIONS 3 [sym_comment]; ACTIONS 4789 [sym_ppFragmentExpr; sym__literalStringMultiline;
   sym_identifier]; ACTIONS 4799 [sym_kDefault; sym_kNodefault]; ACTIONS 4802 [sym_kDispId];
   ACTIONS 4789 [sym_kGeneric; sym_kSpecialize; sym_kOperator]; ACTIONS 4805 [sym_kPublic];
   ACTIONS 4799 [sym_kStatic; sym_kVirtual; sym_kAbstract; sym_kDynamic; sym_kOverride;
   sym_kOverload; sym_kReintroduce; sym_kStdcall; sym_kCdecl; sym_kCppdecl; sym_kPascal;
   sym_kRegister; sym_kMwpascal]; ACTIONS 4808 [sym_kMessage]; ACTIONS 4811 [sym_kDeprecated];
   ACTIONS 4799 [sym_kExperimental; sym_kPlatform; sym_kUnimplemented; sym_kCvar];
   ACTIONS 4814 [sym_kExport]; ACTIONS 4799 [sym_kFar; sym_kNear; sym_kSafecall; sym_kAssembler;
   sym_kNostackframe; sym_kInterrupt; sym_kNoreturn; sym_kIocheck; sym_kLocal; sym_kHardfloat;
   sym_kSoftfloat; sym_kMs_abi_default; sym_kMs_abi_cdecl; sym_kSaveregisters;
   sym_kSysv_abi_default; sym_kSysv_abi_cdecl; sym_kVectorcall; sym_kVarargs; sym_kWinapi];
   ACTIONS 4817 [sym_kAlias]; ACTIONS 4789 [sym_kAsm; sym_kBegin; sym_kCase; sym_kClass;
   sym_kConst; sym_kConstructor; sym_kDestructor; sym_kExports; sym_kFor; sym_kFunction;
   sym_kGoto; sym_kIf; sym_kInherited]; ACTIONS 1016 [sym_kInline]; ACTIONS 4789 [sym_kLabel;
   sym_kNil; sym_kNot; sym_kProcedure; sym_kProperty; sym_kRaise; sym_kRepeat;
   sym_kResourcestring; sym_kString; sym_kThreadvar; sym_kTry; sym_kType; sym_kUses; sym_kVar;
   sym_kWhile; sym_kWith]].

(** State 729. *)
Definition ts_parse_table_729 : parse_row :=
  [STATE 2921 [sym__ppIf]; STATE 1214 [sym__procAttributeNoExt];
   STATE 1215 [sym__procAttributesPp]; STATE 15691 [sym_procAttribute];
   STATE 777 [aux_sym__declProc_repeat1]; ACTIONS 4820 [anon_sym_SEMI; anon_sym_COMMA];
   ACTIONS 4822 [anon_sym_LBRACK]; ACTIONS 4825 [anon_sym_LPAREN];
   ACTIONS 4820 [aux_sym__literalString_token1; anon_sym_POUND];
   ACTIONS 4825 [aux_sym__literalInt_token1]; ACTIONS 4820 [aux_sym__literalInt_token2;
   aux_sym__literalInt_token3]; ACTIONS 4825 [aux_sym__literalFloat_token1];
   ACTIONS 4827 [aux_sym_ppUsesBlock_token1]; ACTIONS 4820 [aux_sym_ppUsesBlock_token2;
   aux_sym_ppUsesBlock_token3]; ACTIONS 4825 [sym_kAdd; sym_kSub]; ACTIONS 4820 [sym_kAt;
   sym_kTrue; sym_kFalse]; ACTIONS 3 [sym__space]; ACTIONS 5 [sym_ppDirective];
   ACTIONS 3 [sym_comment]; ACTIONS 4820 [sym_ppFragmentExpr; sym__literalStringMultiline;
   sym_identifier]; ACTIONS 4830 [sym_kDefault; sym_kNodefault]; ACTIONS 4833 [sym_kDispId];
   ACTIONS 4820 [sym_kGeneric; sym_kSpecialize; sym_kOperator]; ACTIONS 4836 [sym_kPublic];
   ACTIONS 4830 [sym_kStatic; sym_kVirtual; sym_kAbstract; sym_kDynamic; sym_kOverride;
   sym_kOverload; sym_kReintroduce; sym_kStdcall; sym_kCdecl; sym_kCppdecl; sym_kPascal;
   sym_kRegister; sym_kMwpascal]; ACTIONS 4839 [sym_kMessage]; ACTIONS 4842 [sym_kDeprecated];
   ACTIONS 4830 [sym_kExperimental; sym_kPlatform; sym_kUnimplemented; sym_kCvar];
   ACTIONS 4845 [sym_kExport]; ACTIONS 4830 [sym_kFar; sym_kNear; sym_kSafecall; sym_kAssembler;
   sym_kNostackframe; sym_kInterrupt; sym_kNoreturn; sym_kIocheck; sym_kLocal; sym_kHardfloat;
   sym_kSoftfloat; sym_kMs_abi_default; sym_kMs_abi_cdecl; sym_kSaveregisters;
   sym_kSysv_abi_default; sym_kSysv_abi_cdecl; sym_kVectorcall; sym_kVarargs; sym_kWinapi];
   ACTIONS 4848 [sym_kAlias]; ACTIONS 4820 [sym_kAsm; sym_kBegin; sym_kCase; sym_kClass;
   sym_kConst; sym_kConstructor; sym_kDestructor; sym_kExports; sym_kFor; sym_kFunction;
   sym_kGoto; sym_kIf; sym_kInherited]; ACTIONS 1016 [sym_kInline]; ACTIONS 4820 [sym_kLabel;
   sym_kNil; sym_kNot; sym_kProcedure; sym_kProperty; sym_kRaise; sym_kRepeat;
   sym_kResourcestring; sym_kString; sym_kThreadvar; sym_kTry; sym_kType; sym_kUses; sym_kVar;
   sym_kWhile; sym_kWith]].

(** State 730. *)
Definition ts_parse_table_730 : parse_row :=
  [STATE 1204 [sym__procAttribute]; STATE 15235 [sym_procAttribute]; STATE 769 [sym_procExternal;
   aux_sym_declVar_repeat2]; ACTIONS 4851 [anon_sym_SEMI; anon_sym_COMMA];
   ACTIONS 4853 [anon_sym_LBRACK]; ACTIONS 4856 [anon_sym_LPAREN];
   ACTIONS 4851 [aux_sym__literalString_token1; anon_sym_POUND];
   ACTIONS 4856 [aux_sym__literalInt_token1]; ACTIONS 4851 [aux_sym__literalInt_token2;
   aux_sym__literalInt_token3]; ACTIONS 4856 [aux_sym__literalFloat_token1];
   ACTIONS 4851 [aux_sym_ppUsesBlock_token1; aux_sym_ppUsesBlock_token2;
   aux_sym_ppUsesBlock_token3]; ACTIONS 4856 [sym_kAdd; sym_kSub]; ACTIONS 4851 [sym_kAt;
   sym_kTrue; sym_kFalse]; ACTIONS 3 [sym__space]; ACTIONS 5 [sym_ppDirective];
   ACTIONS 3 [sym_comment]; ACTIONS 4851 [sym_ppFragmentExpr; sym__literalStringMultiline;
   sym_identifier]; ACTIONS 4858 [sym_kDefault; sym_kNodefault]; ACTIONS 4861 [sym_kDispId];
   ACTIONS 4851 [sym_kGeneric; sym_kSpecialize; sym_kOperator]; ACTIONS 4864 [sym_kPublic];
   ACTIONS 4858 [sym_kStatic; sym_kVirtual; sym_kAbstract; sym_kDynamic; sym_kOverride;
   sym_kOverload; sym_kReintroduce; sym_kStdcall; sym_kCdecl; sym_kCppdecl; sym_kPascal;
   sym_kRegister; sym_kMwpascal]; ACTIONS 3438 [sym_kExternal]; ACTIONS 4867 [sym_kMessage];
   ACTIONS 4870 [sym_kDeprecated]; ACTIONS 4858 [sym_kExperimental; sym_kPlatform;
   sym_kUnimplemented; sym_kCvar]; ACTIONS 4873 [sym_kExport]; ACTIONS 4858 [sym_kFar; sym_kNear;
   sym_kSafecall; sym_kAssembler; sym_kNostackframe; sym_kInterrupt; sym_kNoreturn; sym_kIocheck;
   sym_kLocal; sym_kHardfloat; sym_kSoftfloat; sym_kMs_abi_default; sym_kMs_abi_cdecl;
   sym_kSaveregisters; sym_kSysv_abi_default; sym_kSysv_abi_cdecl; sym_kVectorcall; sym_kVarargs;
   sym_kWinapi]; ACTIONS 4876 [sym_kAlias]; ACTIONS 4851 [sym_kAsm; sym_kBegin; sym_kCase;
   sym_kClass; sym_kConst; sym_kConstructor; sym_kDestructor; sym_kExports; sym_kFor;
   sym_kFunction; sym_kGoto; sym_kIf; sym_kInherited]; ACTIONS 1016 [sym_kInline];
   ACTIONS 4851 [sym_kLabel; sym_kNil; sym_kNot; sym_kProcedure; sym_kProperty; sym_kRaise;
   sym_kRepeat; sym_kResourcestring; sym_kString; sym_kThreadvar; sym_kTry; sym_kType; sym_kUses;
   sym_kVar; sym_kWhile; sym_kWith]].

(** State 731. *)
Definition ts_parse_table_731 : parse_row :=
  [STATE 1204 [sym__procAttribute]; STATE 15235 [sym_procAttribute]; STATE 732 [sym_procExternal;
   aux_sym_declVar_repeat2]; ACTIONS 4879 [anon_sym_SEMI; anon_sym_COMMA];
   ACTIONS 4881 [anon_sym_LBRACK]; ACTIONS 4884 [anon_sym_LPAREN];
   ACTIONS 4879 [aux_sym__literalString_token1; anon_sym_POUND];
   ACTIONS 4884 [aux_sym__literalInt_token1]; ACTIONS 4879 [aux_sym__literalInt_token2;
   aux_sym__literalInt_token3]; ACTIONS 4884 [aux_sym__literalFloat_token1];
   ACTIONS 4879 [aux_sym_ppUsesBlock_token1; aux_sym_ppUsesBlock_token2;
   aux_sym_ppUsesBlock_token3]; ACTIONS 4884 [sym_kAdd; sym_kSub]; ACTIONS 4879 [sym_kAt;
   sym_kTrue; sym_kFalse]; ACTIONS 3 [sym__space]; ACTIONS 5 [sym_ppDirective];
   ACTIONS 3 [sym_comment]; ACTIONS 4879 [sym_ppFragmentExpr; sym__literalStringMultiline;
   sym_identifier]; ACTIONS 4886 [sym_kDefault; sym_kNodefault]; ACTIONS 4889 [sym_kDispId];
   ACTIONS 4879 [sym_kGeneric; sym_kSpecialize; sym_kOperator]; ACTIONS 4892 [sym_kPublic];
   ACTIONS 4886 [sym_kStatic; sym_kVirtual; sym_kAbstract; sym_kDynamic; sym_kOverride;
   sym_kOverload; sym_kReintroduce; sym_kStdcall; sym_kCdecl; sym_kCppdecl; sym_kPascal;
   sym_kRegister; sym_kMwpascal]; ACTIONS 3438 [sym_kExternal]; ACTIONS 4895 [sym_kMessage];
   ACTIONS 4898 [sym_kDeprecated]; ACTIONS 4886 [sym_kExperimental; sym_kPlatform;
   sym_kUnimplemented; sym_kCvar]; ACTIONS 4901 [sym_kExport]; ACTIONS 4886 [sym_kFar; sym_kNear;
   sym_kSafecall; sym_kAssembler; sym_kNostackframe; sym_kInterrupt; sym_kNoreturn; sym_kIocheck;
   sym_kLocal; sym_kHardfloat; sym_kSoftfloat; sym_kMs_abi_default; sym_kMs_abi_cdecl;
   sym_kSaveregisters; sym_kSysv_abi_default; sym_kSysv_abi_cdecl; sym_kVectorcall; sym_kVarargs;
   sym_kWinapi]; ACTIONS 4904 [sym_kAlias]; ACTIONS 4879 [sym_kAsm; sym_kBegin; sym_kCase;
   sym_kClass; sym_kConst; sym_kConstructor; sym_kDestructor; sym_kExports; sym_kFor;
   sym_kFunction; sym_kGoto; sym_kIf; sym_kInherited]; ACTIONS 1016 [sym_kInline];
   ACTIONS 4879 [sym_kLabel; sym_kNil; sym_kNot; sym_kProcedure; sym_kProperty; sym_kRaise;
   sym_kRepeat; sym_kResourcestring; sym_kString; sym_kThreadvar; sym_kTry; sym_kType; sym_kUses;
   sym_kVar; sym_kWhile; sym_kWith]].

(** State 732. *)
Definition ts_parse_table_732 : parse_row :=
  [STATE 1204 [sym__procAttribute]; STATE 15235 [sym_procAttribute]; STATE 817 [sym_procExternal;
   aux_sym_declVar_repeat2]; ACTIONS 4907 [anon_sym_SEMI; anon_sym_COMMA];
   ACTIONS 4909 [anon_sym_LBRACK]; ACTIONS 4912 [anon_sym_LPAREN];
   ACTIONS 4907 [aux_sym__literalString_token1; anon_sym_POUND];
   ACTIONS 4912 [aux_sym__literalInt_token1]; ACTIONS 4907 [aux_sym__literalInt_token2;
   aux_sym__literalInt_token3]; ACTIONS 4912 [aux_sym__literalFloat_token1];
   ACTIONS 4907 [aux_sym_ppUsesBlock_token1; aux_sym_ppUsesBlock_token2;
   aux_sym_ppUsesBlock_token3]; ACTIONS 4912 [sym_kAdd; sym_kSub]; ACTIONS 4907 [sym_kAt;
   sym_kTrue; sym_kFalse]; ACTIONS 3 [sym__space]; ACTIONS 5 [sym_ppDirective];
   ACTIONS 3 [sym_comment]; ACTIONS 4907 [sym_ppFragmentExpr; sym__literalStringMultiline;
   sym_identifier]; ACTIONS 4914 [sym_kDefault; sym_kNodefault]; ACTIONS 4917 [sym_kDispId];
   ACTIONS 4907 [sym_kGeneric; sym_kSpecialize; sym_kOperator]; ACTIONS 4920 [sym_kPublic];
   ACTIONS 4914 [sym_kStatic; sym_kVirtual; sym_kAbstract; sym_kDynamic; sym_kOverride;
   sym_kOverload; sym_kReintroduce; sym_kStdcall; sym_kCdecl; sym_kCppdecl; sym_kPascal;
   sym_kRegister; sym_kMwpascal]; ACTIONS 3438 [sym_kExternal]; ACTIONS 4923 [sym_kMessage];
   ACTIONS 4926 [sym_kDeprecated]; ACTIONS 4914 [sym_kExperimental; sym_kPlatform;
   sym_kUnimplemented; sym_kCvar]; ACTIONS 4929 [sym_kExport]; ACTIONS 4914 [sym_kFar; sym_kNear;
   sym_kSafecall; sym_kAssembler; sym_kNostackframe; sym_kInterrupt; sym_kNoreturn; sym_kIocheck;
   sym_kLocal; sym_kHardfloat; sym_kSoftfloat; sym_kMs_abi_default; sym_kMs_abi_cdecl;
   sym_kSaveregisters; sym_kSysv_abi_default; sym_kSysv_abi_cdecl; sym_kVectorcall; sym_kVarargs;
   sym_kWinapi]; ACTIONS 4932 [sym_kAlias]; ACTIONS 4907 [sym_kAsm; sym_kBegin; sym_kCase;
   sym_kClass; sym_kConst; sym_kConstructor; sym_kDestructor; sym_kExports; sym_kFor;
   sym_kFunction; sym_kGoto; sym_kIf; sym_kInherited]; ACTIONS 1016 [sym_kInline];
   ACTIONS 4907 [sym_kLabel; sym_kNil; sym_kNot; sym_kProcedure; sym_kProperty; sym_kRaise;
   sym_kRepeat; sym_kResourcestring; sym_kString; sym_kThreadvar; sym_kTry; sym_kType; sym_kUses;
   sym_kVar; sym_kWhile; sym_kWith]].

(** State 733. *)
Definition ts_parse_table_733 : parse_row :=
  [STATE 2921 [sym__ppIf]; STATE 1214 [sym__procAttributeNoExt];
   STATE 1215 [sym__procAttributesPp]; STATE 15691 [sym_procAttribute];
   STATE 777 [aux_sym__declProc_repeat1]; ACTIONS 2621 [anon_sym_SEMI; anon_sym_COMMA];
   ACTIONS 4935 [anon_sym_LBRACK]; ACTIONS 2626 [anon_sym_LPAREN];
   ACTIONS 2621 [aux_sym__literalString_token1; anon_sym_POUND];
   ACTIONS 2626 [aux_sym__literalInt_token1]; ACTIONS 2621 [aux_sym__literalInt_token2;
   aux_sym__literalInt_token3]; ACTIONS 2626 [aux_sym__literalFloat_token1];
   ACTIONS 2628 [aux_sym_ppUsesBlock_token1]; ACTIONS 2621 [aux_sym_ppUsesBlock_token2;
   aux_sym_ppUsesBlock_token3]; ACTIONS 2626 [sym_kAdd; sym_kSub]; ACTIONS 2621 [sym_kAt;
   sym_kTrue; sym_kFalse]; ACTIONS 3 [sym__space]; ACTIONS 5 [sym_ppDirective];
   ACTIONS 3 [sym_comment]; ACTIONS 2621 [sym_ppFragmentExpr; sym__literalStringMultiline;
   sym_identifier]; ACTIONS 2631 [sym_kDefault; sym_kNodefault]; ACTIONS 2634 [sym_kDispId];
   ACTIONS 2621 [sym_kGeneric; sym_kSpecialize; sym_kOperator]; ACTIONS 2637 [sym_kPublic];
   ACTIONS 2631 [sym_kStatic; sym_kVirtual; sym_kAbstract; sym_kDynamic; sym_kOverride;
   sym_kOverload; sym_kReintroduce; sym_kStdcall; sym_kCdecl; sym_kCppdecl; sym_kPascal;
   sym_kRegister; sym_kMwpascal]; ACTIONS 2640 [sym_kMessage]; ACTIONS 2643 [sym_kDeprecated];
   ACTIONS 2631 [sym_kExperimental; sym_kPlatform; sym_kUnimplemented; sym_kCvar];
   ACTIONS 2646 [sym_kExport]; ACTIONS 2631 [sym_kFar; sym_kNear; sym_kSafecall; sym_kAssembler;
   sym_kNostackframe; sym_kInterrupt; sym_kNoreturn; sym_kIocheck; sym_kLocal; sym_kHardfloat;
   sym_kSoftfloat; sym_kMs_abi_default; sym_kMs_abi_cdecl; sym_kSaveregisters;
   sym_kSysv_abi_default; sym_kSysv_abi_cdecl; sym_kVectorcall; sym_kVarargs; sym_kWinapi];
   ACTIONS 2649 [sym_kAlias]; ACTIONS 2621 [sym_kAsm; sym_kBegin; sym_kCase; sym_kClass;
   sym_kConst; sym_kConstructor; sym_kDestructor; sym_kExports; sym_kFor; sym_kFunction;
   sym_kGoto; sym_kIf; sym_kInherited]; ACTIONS 1016 [sym_kInline]; ACTIONS 2621 [sym_kLabel;
   sym_kNil; sym_kNot; sym_kProcedure; sym_kProperty; sym_kRaise; sym_kRepeat;
   sym_kResourcestring; sym_kString; sym_kThreadvar; sym_kTry; sym_kType; sym_kUses; sym_kVar;
   sym_kWhile; sym_kWith]].

(** State 734. *)
Definition ts_parse_table_734 : parse_row :=
  [STATE 2921 [sym__ppIf]; STATE 1214 [sym__procAttributeNoExt];
   STATE 1215 [sym__procAttributesPp]; STATE 15691 [sym_procAttribute];
   STATE 777 [aux_sym__declProc_repeat1]; ACTIONS 4938 [anon_sym_SEMI; anon_sym_COMMA];
   ACTIONS 4940 [anon_sym_LBRACK]; ACTIONS 4943 [anon_sym_LPAREN];
   ACTIONS 4938 [aux_sym__literalString_token1; anon_sym_POUND];
   ACTIONS 4943 [aux_sym__literalInt_token1]; ACTIONS 4938 [aux_sym__literalInt_token2;
   aux_sym__literalInt_token3]; ACTIONS 4943 [aux_sym__literalFloat_token1];
   ACTIONS 4945 [aux_sym_ppUsesBlock_token1]; ACTIONS 4938 [aux_sym_ppUsesBlock_token2;
   aux_sym_ppUsesBlock_token3]; ACTIONS 4943 [sym_kAdd; sym_kSub]; ACTIONS 4938 [sym_kAt;
   sym_kTrue; sym_kFalse]; ACTIONS 3 [sym__space]; ACTIONS 5 [sym_ppDirective];
   ACTIONS 3 [sym_comment]; ACTIONS 4938 [sym_ppFragmentExpr; sym__literalStringMultiline;
   sym_identifier]; ACTIONS 4948 [sym_kDefault; sym_kNodefault]; ACTIONS 4951 [sym_kDispId];
   ACTIONS 4938 [sym_kGeneric; sym_kSpecialize; sym_kOperator]; ACTIONS 4954 [sym_kPublic];
   ACTIONS 4948 [sym_kStatic; sym_kVirtual; sym_kAbstract; sym_kDynamic; sym_kOverride;
   sym_kOverload; sym_kReintroduce; sym_kStdcall; sym_kCdecl; sym_kCppdecl; sym_kPascal;
   sym_kRegister; sym_kMwpascal]; ACTIONS 4957 [sym_kMessage]; ACTIONS 4960 [sym_kDeprecated];
   ACTIONS 4948 [sym_kExperimental; sym_kPlatform; sym_kUnimplemented; sym_kCvar];
   ACTIONS 4963 [sym_kExport]; ACTIONS 4948 [sym_kFar; sym_kNear; sym_kSafecall; sym_kAssembler;
   sym_kNostackframe; sym_kInterrupt; sym_kNoreturn; sym_kIocheck; sym_kLocal; sym_kHardfloat;
   sym_kSoftfloat; sym_kMs_abi_default; sym_kMs_abi_cdecl; sym_kSaveregisters;
   sym_kSysv_abi_default; sym_kSysv_abi_cdecl; sym_kVectorcall; sym_kVarargs; sym_kWinapi];
   ACTIONS 4966 [sym_kAlias]; ACTIONS 4938 [sym_kAsm; sym_kBegin; sym_kCase; sym_kClass;
   sym_kConst; sym_kConstructor; sym_kDestructor; sym_kExports; sym_kFor; sym_kFunction;
   sym_kGoto; sym_kIf; sym_kInherited]; ACTIONS 1016 [sym_kInline]; ACTIONS 4938 [sym_kLabel;
   sym_kNil; sym_kNot; sym_kProcedure; sym_kProperty; sym_kRaise; sym_kRepeat;
   sym_kResourcestring; sym_kString; sym_kThreadvar; sym_kTry; sym_kType; sym_kUses; sym_kVar;
   sym_kWhile; sym_kWith]].

(** State 735. *)
Definition ts_parse_table_735 : parse_row :=
  [STATE 1204 [sym__procAttribute]; STATE 15235 [sym_procAttribute]; STATE 817 [sym_procExternal;
   aux_sym_declVar_repeat2]; ACTIONS 4969 [anon_sym_SEMI; anon_sym_COMMA];
   ACTIONS 4971 [anon_sym_LBRACK]; ACTIONS 4974 [anon_sym_LPAREN];
   ACTIONS 4969 [aux_sym__literalString_token1; anon_sym_POUND];
   ACTIONS 4974 [aux_sym__literalInt_token1]; ACTIONS 4969 [aux_sym__literalInt_token2;
   aux_sym__literalInt_token3]; ACTIONS 4974 [aux_sym__literalFloat_token1];
   ACTIONS 4969 [aux_sym_ppUsesBlock_token1; aux_sym_ppUsesBlock_token2;
   aux_sym_ppUsesBlock_token3]; ACTIONS 4974 [sym_kAdd; sym_kSub]; ACTIONS 4969 [sym_kAt;
   sym_kTrue; sym_kFalse]; ACTIONS 3 [sym__space]; ACTIONS 5 [sym_ppDirective];
   ACTIONS 3 [sym_comment]; ACTIONS 4969 [sym_ppFragmentExpr; sym__literalStringMultiline;
   sym_identifier]; ACTIONS 4976 [sym_kDefault; sym_kNodefault]; ACTIONS 4979 [sym_kDispId];
   ACTIONS 4969 [sym_kGeneric; sym_kSpecialize; sym_kOperator]; ACTIONS 4982 [sym_kPublic];
   ACTIONS 4976 [sym_kStatic; sym_kVirtual; sym_kAbstract; sym_kDynamic; sym_kOverride;
   sym_kOverload; sym_kReintroduce; sym_kStdcall; sym_kCdecl; sym_kCppdecl; sym_kPascal;
   sym_kRegister; sym_kMwpascal]; ACTIONS 3438 [sym_kExternal]; ACTIONS 4985 [sym_kMessage];
   ACTIONS 4988 [sym_kDeprecated]; ACTIONS 4976 [sym_kExperimental; sym_kPlatform;
   sym_kUnimplemented; sym_kCvar]; ACTIONS 4991 [sym_kExport]; ACTIONS 4976 [sym_kFar; sym_kNear;
   sym_kSafecall; sym_kAssembler; sym_kNostackframe; sym_kInterrupt; sym_kNoreturn; sym_kIocheck;
   sym_kLocal; sym_kHardfloat; sym_kSoftfloat; sym_kMs_abi_default; sym_kMs_abi_cdecl;
   sym_kSaveregisters; sym_kSysv_abi_default; sym_kSysv_abi_cdecl; sym_kVectorcall; sym_kVarargs;
   sym_kWinapi]; ACTIONS 4994 [sym_kAlias]; ACTIONS 4969 [sym_kAsm; sym_kBegin; sym_kCase;
   sym_kClass; sym_kConst; sym_kConstructor; sym_kDestructor; sym_kExports; sym_kFor;
   sym_kFunction; sym_kGoto; sym_kIf; sym_kInherited]; ACTIONS 1016 [sym_kInline];
   ACTIONS 4969 [sym_kLabel; sym_kNil; sym_kNot; sym_kProcedure; sym_kProperty; sym_kRaise;
   sym_kRepeat; sym_kResourcestring; sym_kString; sym_kThreadvar; sym_kTry; sym_kType; sym_kUses;
   sym_kVar; sym_kWhile; sym_kWith]].

(** State 736. *)
Definition ts_parse_table_736 : parse_row :=
  [STATE 2921 [sym__ppIf]; STATE 1214 [sym__procAttributeNoExt];
   STATE 1215 [sym__procAttributesPp]; STATE 15691 [sym_procAttribute];
   STATE 706 [aux_sym__declProc_repeat1]; ACTIONS 4997 [anon_sym_SEMI; anon_sym_COMMA];
   ACTIONS 4999 [anon_sym_LBRACK]; ACTIONS 5002 [anon_sym_LPAREN];
   ACTIONS 4997 [aux_sym__literalString_token1; anon_sym_POUND];
   ACTIONS 5002 [aux_sym__literalInt_token1]; ACTIONS 4997 [aux_sym__literalInt_token2;
   aux_sym__literalInt_token3]; ACTIONS 5002 [aux_sym__literalFloat_token1];
   ACTIONS 5004 [aux_sym_ppUsesBlock_token1]; ACTIONS 4997 [aux_sym_ppUsesBlock_token2;
   aux_sym_ppUsesBlock_token3]; ACTIONS 5002 [sym_kAdd; sym_kSub]; ACTIONS 4997 [sym_kAt;
   sym_kTrue; sym_kFalse]; ACTIONS 3 [sym__space]; ACTIONS 5 [sym_ppDirective];
   ACTIONS 3 [sym_comment]; ACTIONS 4997 [sym_ppFragmentExpr; sym__literalStringMultiline;
   sym_identifier]; ACTIONS 5007 [sym_kDefault; sym_kNodefault]; ACTIONS 5010 [sym_kDispId];
   ACTIONS 4997 [sym_kGeneric; sym_kSpecialize; sym_kOperator]; ACTIONS 5013 [sym_kPublic];
   ACTIONS 5007 [sym_kStatic; sym_kVirtual; sym_kAbstract; sym_kDynamic; sym_kOverride;
   sym_kOverload; sym_kReintroduce; sym_kStdcall; sym_kCdecl; sym_kCppdecl; sym_kPascal;
   sym_kRegister; sym_kMwpascal]; ACTIONS 5016 [sym_kMessage]; ACTIONS 5019 [sym_kDeprecated];
   ACTIONS 5007 [sym_kExperimental; sym_kPlatform; sym_kUnimplemented; sym_kCvar];
   ACTIONS 5022 [sym_kExport]; ACTIONS 5007 [sym_kFar; sym_kNear; sym_kSafecall; sym_kAssembler;
   sym_kNostackframe; sym_kInterrupt; sym_kNoreturn; sym_kIocheck; sym_kLocal; sym_kHardfloat;
   sym_kSoftfloat; sym_kMs_abi_default; sym_kMs_abi_cdecl; sym_kSaveregisters;
   sym_kSysv_abi_default; sym_kSysv_abi_cdecl; sym_kVectorcall; sym_kVarargs; sym_kWinapi];
   ACTIONS 5025 [sym_kAlias]; ACTIONS 4997 [sym_kAsm; sym_kBegin; sym_kCase; sym_kClass;
   sym_kConst; sym_kConstructor; sym_kDestructor; sym_kExports; sym_kFor; sym_kFunction;
   sym_kGoto; sym_kIf; sym_kInherited]; ACTIONS 1016 [sym_kInline]; ACTIONS 4997 [sym_kLabel;
   sym_kNil; sym_kNot; sym_kProcedure; sym_kProperty; sym_kRaise; sym_kRepeat;
   sym_kResourcestring; sym_kString; sym_kThreadvar; sym_kTry; sym_kType; sym_kUses; sym_kVar;
   sym_kWhile; sym_kWith]].

(** State 737. *)
Definition ts_parse_table_737 : parse_row :=
  [STATE 2921 [sym__ppIf]; STATE 1214 [sym__procAttributeNoExt];
   STATE 1215 [sym__procAttributesPp]; STATE 15691 [sym_procAttribute];
   STATE 777 [aux_sym__declProc_repeat1]; ACTIONS 5028 [anon_sym_SEMI; anon_sym_COMMA];
   ACTIONS 5030 [anon_sym_LBRACK]; ACTIONS 5033 [anon_sym_LPAREN];
   ACTIONS 5028 [aux_sym__literalString_token1; anon_sym_POUND];
   ACTIONS 5033 [aux_sym__literalInt_token1]; ACTIONS 5028 [aux_sym__literalInt_token2;
   aux_sym__literalInt_token3]; ACTIONS 5033 [aux_sym__literalFloat_token1];
   ACTIONS 5035 [aux_sym_ppUsesBlock_token1]; ACTIONS 5028 [aux_sym_ppUsesBlock_token2;
   aux_sym_ppUsesBlock_token3]; ACTIONS 5033 [sym_kAdd; sym_kSub]; ACTIONS 5028 [sym_kAt;
   sym_kTrue; sym_kFalse]; ACTIONS 3 [sym__space]; ACTIONS 5 [sym_ppDirective];
   ACTIONS 3 [sym_comment]; ACTIONS 5028 [sym_ppFragmentExpr; sym__literalStringMultiline;
   sym_identifier]; ACTIONS 5038 [sym_kDefault; sym_kNodefault]; ACTIONS 5041 [sym_kDispId];
   ACTIONS 5028 [sym_kGeneric; sym_kSpecialize; sym_kOperator]; ACTIONS 5044 [sym_kPublic];
   ACTIONS 5038 [sym_kStatic; sym_kVirtual; sym_kAbstract; sym_kDynamic; sym_kOverride;
   sym_kOverload; sym_kReintroduce; sym_kStdcall; sym_kCdecl; sym_kCppdecl; sym_kPascal;
   sym_kRegister; sym_kMwpascal]; ACTIONS 5047 [sym_kMessage]; ACTIONS 5050 [sym_kDeprecated];
   ACTIONS 5038 [sym_kExperimental; sym_kPlatform; sym_kUnimplemented; sym_kCvar];
   ACTIONS 5053 [sym_kExport]; ACTIONS 5038 [sym_kFar; sym_kNear; sym_kSafecall; sym_kAssembler;
   sym_kNostackframe; sym_kInterrupt; sym_kNoreturn; sym_kIocheck; sym_kLocal; sym_kHardfloat;
   sym_kSoftfloat; sym_kMs_abi_default; sym_kMs_abi_cdecl; sym_kSaveregisters;
   sym_kSysv_abi_default; sym_kSysv_abi_cdecl; sym_kVectorcall; sym_kVarargs; sym_kWinapi];
   ACTIONS 5056 [sym_kAlias]; ACTIONS 5028 [sym_kAsm; sym_kBegin; sym_kCase; sym_kClass;
   sym_kConst; sym_kConstructor; sym_kDestructor; sym_kExports; sym_kFor; sym_kFunction;
   sym_kGoto; sym_kIf; sym_kInherited]; ACTIONS 1016 [sym_kInline]; ACTIONS 5028 [sym_kLabel;
   sym_kNil; sym_kNot; sym_kProcedure; sym_kProperty; sym_kRaise; sym_kRepeat;
   sym_kResourcestring; sym_kString; sym_kThreadvar; sym_kTry; sym_kType; sym_kUses; sym_kVar;
   sym_kWhile; sym_kWith]].

(** State 738. *)
Definition ts_parse_table_738 : parse_row :=
  [STATE 2921 [sym__ppIf]; STATE 1214 [sym__procAttributeNoExt];
   STATE 1215 [sym__procAttributesPp]; STATE 15691 [sym_procAttribute];
   STATE 777 [aux_sym__declProc_repeat1]; ACTIONS 3100 [anon_sym_SEMI; anon_sym_COMMA];
   ACTIONS 5059 [anon_sym_LBRACK]; ACTIONS 3105 [anon_sym_LPAREN];
   ACTIONS 3100 [aux_sym__literalString_token1; anon_sym_POUND];
   ACTIONS 3105 [aux_sym__literalInt_token1]; ACTIONS 3100 [aux_sym__literalInt_token2;
   aux_sym__literalInt_token3]; ACTIONS 3105 [aux_sym__literalFloat_token1];
   ACTIONS 3107 [aux_sym_ppUsesBlock_token1]; ACTIONS 3100 [aux_sym_ppUsesBlock_token2;
   aux_sym_ppUsesBlock_token3]; ACTIONS 3105 [sym_kAdd; sym_kSub]; ACTIONS 3100 [sym_kAt;
   sym_kTrue; sym_kFalse]; ACTIONS 3 [sym__space]; ACTIONS 5 [sym_ppDirective];
   ACTIONS 3 [sym_comment]; ACTIONS 3100 [sym_ppFragmentExpr; sym__literalStringMultiline;
   sym_identifier]; ACTIONS 3110 [sym_kDefault; sym_kNodefault]; ACTIONS 3113 [sym_kDispId];
   ACTIONS 3100 [sym_kGeneric; sym_kSpecialize; sym_kOperator]; ACTIONS 3116 [sym_kPublic];
   ACTIONS 3110 [sym_kStatic; sym_kVirtual; sym_kAbstract; sym_kDynamic; sym_kOverride;
   sym_kOverload; sym_kReintroduce; sym_kStdcall; sym_kCdecl; sym_kCppdecl; sym_kPascal;
   sym_kRegister; sym_kMwpascal]; ACTIONS 3119 [sym_kMessage]; ACTIONS 3122 [sym_kDeprecated];
   ACTIONS 3110 [sym_kExperimental; sym_kPlatform; sym_kUnimplemented; sym_kCvar];
   ACTIONS 3125 [sym_kExport]; ACTIONS 3110 [sym_kFar; sym_kNear; sym_kSafecall; sym_kAssembler;
   sym_kNostackframe; sym_kInterrupt; sym_kNoreturn; sym_kIocheck; sym_kLocal; sym_kHardfloat;
   sym_kSoftfloat; sym_kMs_abi_default; sym_kMs_abi_cdecl; sym_kSaveregisters;
   sym_kSysv_abi_default; sym_kSysv_abi_cdecl; sym_kVectorcall; sym_kVarargs; sym_kWinapi];
   ACTIONS 3128 [sym_kAlias]; ACTIONS 3100 [sym_kAsm; sym_kBegin; sym_kCase; sym_kClass;
   sym_kConst; sym_kConstructor; sym_kDestructor; sym_kExports; sym_kFor; sym_kFunction;
   sym_kGoto; sym_kIf; sym_kInherited]; ACTIONS 1016 [sym_kInline]; ACTIONS 3100 [sym_kLabel;
   sym_kNil; sym_kNot; sym_kProcedure; sym_kProperty; sym_kRaise; sym_kRepeat;
   sym_kResourcestring; sym_kString; sym_kThreadvar; sym_kTry; sym_kType; sym_kUses; sym_kVar;
   sym_kWhile; sym_kWith]].

(** State 739. *)
Definition ts_parse_table_739 : parse_row :=
  [STATE 17 [sym__ppIf]; STATE 771 [sym_ppBlock; sym_declConst];
   STATE 15416 [sym_rttiAttributes]; STATE 771 [aux_sym_declConsts_repeat1];
   STATE 12776 [aux_sym_rttiAttributes_repeat2]; ACTIONS 5062 [anon_sym_SEMI; anon_sym_COMMA];
   ACTIONS 5064 [anon_sym_LBRACK]; ACTIONS 5067 [anon_sym_LPAREN];
   ACTIONS 5062 [aux_sym__literalString_token1; anon_sym_POUND];
   ACTIONS 5067 [aux_sym__literalInt_token1]; ACTIONS 5062 [aux_sym__literalInt_token2;
   aux_sym__literalInt_token3]; ACTIONS 5067 [aux_sym__literalFloat_token1];
   ACTIONS 5069 [aux_sym_ppUsesBlock_token1]; ACTIONS 5062 [aux_sym_ppUsesBlock_token2;
   aux_sym_ppUsesBlock_token3]; ACTIONS 5067 [sym_kAdd; sym_kSub]; ACTIONS 5062 [sym_kAt;
   sym_kTrue; sym_kFalse]; ACTIONS 3 [sym__space]; ACTIONS 5 [sym_ppDirective];
   ACTIONS 3 [sym_comment]; ACTIONS 5062 [sym_ppFragmentExpr; sym__literalStringMultiline];
   ACTIONS 5072 [sym_identifier]; ACTIONS 5062 [sym_kDefault; sym_kNodefault; sym_kDispId;
   sym_kGeneric; sym_kSpecialize; sym_kOperator; sym_kPublic; sym_kStatic; sym_kVirtual;
   sym_kAbstract; sym_kDynamic; sym_kOverride; sym_kOverload; sym_kReintroduce; sym_kStdcall;
   sym_kCdecl; sym_kCppdecl; sym_kPascal; sym_kRegister; sym_kMwpascal; sym_kMessage;
   sym_kDeprecated; sym_kExperimental; sym_kPlatform; sym_kUnimplemented; sym_kCvar; sym_kExport;
   sym_kFar; sym_kNear; sym_kSafecall; sym_kAssembler; sym_kNostackframe; sym_kInterrupt;
   sym_kNoreturn; sym_kIocheck; sym_kLocal; sym_kHardfloat; sym_kSoftfloat; sym_kMs_abi_default;
   sym_kMs_abi_cdecl; sym_kSaveregisters; sym_kSysv_abi_default; sym_kSysv_abi_cdecl;
   sym_kVectorcall; sym_kVarargs; sym_kWinapi; sym_kAlias; sym_kAsm; sym_kBegin; sym_kCase;
   sym_kClass; sym_kConst; sym_kConstructor; sym_kDestructor; sym_kExports; sym_kFor;
   sym_kFunction; sym_kGoto; sym_kIf; sym_kInherited; sym_kLabel; sym_kNil; sym_kNot;
   sym_kProcedure; sym_kProperty; sym_kRaise; sym_kRepeat; sym_kResourcestring; sym_kString;
   sym_kThreadvar; sym_kTry; sym_kType; sym_kUses; sym_kVar; sym_kWhile; sym_kWith]].

(** State 740. *)
Definition ts_parse_table_740 : parse_row :=
  [STATE 2921 [sym__ppIf]; STATE 1214 [sym__procAttributeNoExt];
   STATE 1215 [sym__procAttributesPp]; STATE 15691 [sym_procAttribute];
   STATE 729 [aux_sym__declProc_repeat1]; ACTIONS 5075 [anon_sym_SEMI; anon_sym_COMMA];
   ACTIONS 5077 [anon_sym_LBRACK]; ACTIONS 5080 [anon_sym_LPAREN];
   ACTIONS 5075 [aux_sym__literalString_token1; anon_sym_POUND];
   ACTIONS 5080 [aux_sym__literalInt_token1]; ACTIONS 5075 [aux_sym__literalInt_token2;
   aux_sym__literalInt_token3]; ACTIONS 5080 [aux_sym__literalFloat_token1];
   ACTIONS 5082 [aux_sym_ppUsesBlock_token1]; ACTIONS 5075 [aux_sym_ppUsesBlock_token2;
   aux_sym_ppUsesBlock_token3]; ACTIONS 5080 [sym_kAdd; sym_kSub]; ACTIONS 5075 [sym_kAt;
   sym_kTrue; sym_kFalse]; ACTIONS 3 [sym__space]; ACTIONS 5 [sym_ppDirective];
   ACTIONS 3 [sym_comment]; ACTIONS 5075 [sym_ppFragmentExpr; sym__literalStringMultiline;
   sym_identifier]; ACTIONS 5085 [sym_kDefault; sym_kNodefault]; ACTIONS 5088 [sym_kDispId];
   ACTIONS 5075 [sym_kGeneric; sym_kSpecialize; sym_kOperator]; ACTIONS 5091 [sym_kPublic];
   ACTIONS 5085 [sym_kStatic; sym_kVirtual; sym_kAbstract; sym_kDynamic; sym_kOverride;
   sym_kOverload; sym_kReintroduce; sym_kStdcall; sym_kCdecl; sym_kCppdecl; sym_kPascal;
   sym_kRegister; sym_kMwpascal]; ACTIONS 5094 [sym_kMessage]; ACTIONS 5097 [sym_kDeprecated];
   ACTIONS 5085 [sym_kExperimental; sym_kPlatform; sym_kUnimplemented; sym_kCvar];
   ACTIONS 5100 [sym_kExport]; ACTIONS 5085 [sym_kFar; sym_kNear; sym_kSafecall; sym_kAssembler;
   sym_kNostackframe; sym_kInterrupt; sym_kNoreturn; sym_kIocheck; sym_kLocal; sym_kHardfloat;
   sym_kSoftfloat; sym_kMs_abi_default; sym_kMs_abi_cdecl; sym_kSaveregisters;
   sym_kSysv_abi_default; sym_kSysv_abi_cdecl; sym_kVectorcall; sym_kVarargs; sym_kWinapi];
   ACTIONS 5103 [sym_kAlias]; ACTIONS 5075 [sym_kAsm; sym_kBegin; sym_kCase; sym_kClass;
   sym_kConst; sym_kConstructor; sym_kDestructor; sym_kExports; sym_kFor; sym_kFunction;
   sym_kGoto; sym_kIf; sym_kInherited]; ACTIONS 1016 [sym_kInline]; ACTIONS 5075 [sym_kLabel;
   sym_kNil; sym_kNot; sym_kProcedure; sym_kProperty; sym_kRaise; sym_kRepeat;
   sym_kResourcestring; sym_kString; sym_kThreadvar; sym_kTry; sym_kType; sym_kUses; sym_kVar;
   sym_kWhile; sym_kWith]].

(** State 741. *)
Definition ts_parse_table_741 : parse_row :=
  [STATE 1204 [sym__procAttribute]; STATE 15235 [sym_procAttribute]; STATE 857 [sym_procExternal;
   aux_sym_declVar_repeat2]; ACTIONS 5106 [anon_sym_SEMI; anon_sym_COMMA];
   ACTIONS 5108 [anon_sym_LBRACK]; ACTIONS 5111 [anon_sym_LPAREN];
   ACTIONS 5106 [aux_sym__literalString_token1; anon_sym_POUND];
   ACTIONS 5111 [aux_sym__literalInt_token1]; ACTIONS 5106 [aux_sym__literalInt_token2;
   aux_sym__literalInt_token3]; ACTIONS 5111 [aux_sym__literalFloat_token1];
   ACTIONS 5106 [aux_sym_ppUsesBlock_token1; aux_sym_ppUsesBlock_token2;
   aux_sym_ppUsesBlock_token3]; ACTIONS 5111 [sym_kAdd; sym_kSub]; ACTIONS 5106 [sym_kAt;
   sym_kTrue; sym_kFalse]; ACTIONS 3 [sym__space]; ACTIONS 5 [sym_ppDirective];
   ACTIONS 3 [sym_comment]; ACTIONS 5106 [sym_ppFragmentExpr; sym__literalStringMultiline;
   sym_identifier]; ACTIONS 5113 [sym_kDefault; sym_kNodefault]; ACTIONS 5116 [sym_kDispId];
   ACTIONS 5106 [sym_kGeneric; sym_kSpecialize; sym_kOperator]; ACTIONS 5119 [sym_kPublic];
   ACTIONS 5113 [sym_kStatic; sym_kVirtual; sym_kAbstract; sym_kDynamic; sym_kOverride;
   sym_kOverload; sym_kReintroduce; sym_kStdcall; sym_kCdecl; sym_kCppdecl; sym_kPascal;
   sym_kRegister; sym_kMwpascal]; ACTIONS 3438 [sym_kExternal]; ACTIONS 5122 [sym_kMessage];
   ACTIONS 5125 [sym_kDeprecated]; ACTIONS 5113 [sym_kExperimental; sym_kPlatform;
   sym_kUnimplemented; sym_kCvar]; ACTIONS 5128 [sym_kExport]; ACTIONS 5113 [sym_kFar; sym_kNear;
   sym_kSafecall; sym_kAssembler; sym_kNostackframe; sym_kInterrupt; sym_kNoreturn; sym_kIocheck;
   sym_kLocal; sym_kHardfloat; sym_kSoftfloat; sym_kMs_abi_default; sym_kMs_abi_cdecl;
   sym_kSaveregisters; sym_kSysv_abi_default; sym_kSysv_abi_cdecl; sym_kVectorcall; sym_kVarargs;
   sym_kWinapi]; ACTIONS 5131 [sym_kAlias]; ACTIONS 5106 [sym_kAsm; sym_kBegin; sym_kCase;
   sym_kClass; sym_kConst; sym_kConstructor; sym_kDestructor; sym_kExports; sym_kFor;
   sym_kFunction; sym_kGoto; sym_kIf; sym_kInherited]; ACTIONS 1016 [sym_kInline];
   ACTIONS 5106 [sym_kLabel; sym_kNil; sym_kNot; sym_kProcedure; sym_kProperty; sym_kRaise;
   sym_kRepeat; sym_kResourcestring; sym_kString; sym_kThreadvar; sym_kTry; sym_kType; sym_kUses;
   sym_kVar; sym_kWhile; sym_kWith]].

(** State 742. *)
Definition ts_parse_table_742 : parse_row :=
  [STATE 17 [sym__ppIf]; STATE 793 [sym_ppBlock; sym_declConst];
   STATE 15416 [sym_rttiAttributes]; STATE 793 [aux_sym_declConsts_repeat1];
   STATE 12776 [aux_sym_rttiAttributes_repeat2]; ACTIONS 5062 [anon_sym_SEMI; anon_sym_COMMA];
   ACTIONS 5064 [anon_sym_LBRACK]; ACTIONS 5067 [anon_sym_LPAREN];
   ACTIONS 5062 [aux_sym__literalString_token1; anon_sym_POUND];
   ACTIONS 5067 [aux_sym__literalInt_token1]; ACTIONS 5062 [aux_sym__literalInt_token2;
   aux_sym__literalInt_token3]; ACTIONS 5067 [aux_sym__literalFloat_token1];
   ACTIONS 5069 [aux_sym_ppUsesBlock_token1]; ACTIONS 5062 [aux_sym_ppUsesBlock_token2;
   aux_sym_ppUsesBlock_token3]; ACTIONS 5067 [sym_kAdd; sym_kSub]; ACTIONS 5062 [sym_kAt;
   sym_kTrue; sym_kFalse]; ACTIONS 3 [sym__space]; ACTIONS 5 [sym_ppDirective];
   ACTIONS 3 [sym_comment]; ACTIONS 5062 [sym_ppFragmentExpr; sym__literalStringMultiline];
   ACTIONS 5072 [sym_identifier]; ACTIONS 5062 [sym_kDefault; sym_kNodefault; sym_kDispId;
   sym_kGeneric; sym_kSpecialize; sym_kOperator; sym_kPublic; sym_kStatic; sym_kVirtual;
   sym_kAbstract; sym_kDynamic; sym_kOverride; sym_kOverload; sym_kReintroduce; sym_kStdcall;
   sym_kCdecl; sym_kCppdecl; sym_kPascal; sym_kRegister; sym_kMwpascal; sym_kMessage;
   sym_kDeprecated; sym_kExperimental; sym_kPlatform; sym_kUnimplemented; sym_kCvar; sym_kExport;
   sym_kFar; sym_kNear; sym_kSafecall; sym_kAssembler; sym_kNostackframe; sym_kInterrupt;
   sym_kNoreturn; sym_kIocheck; sym_kLocal; sym_kHardfloat; sym_kSoftfloat; sym_kMs_abi_default;
   sym_kMs_abi_cdecl; sym_kSaveregisters; sym_kSysv_abi_default; sym_kSysv_abi_cdecl;
   sym_kVectorcall; sym_kVarargs; sym_kWinapi; sym_kAlias; sym_kAsm; sym_kBegin; sym_kCase;
   sym_kClass; sym_kConst; sym_kConstructor; sym_kDestructor; sym_kExports; sym_kFor;
   sym_kFunction; sym_kGoto; sym_kIf; sym_kInherited; sym_kLabel; sym_kNil; sym_kNot;
   sym_kProcedure; sym_kProperty; sym_kRaise; sym_kRepeat; sym_kResourcestring; sym_kString;
   sym_kThreadvar; sym_kTry; sym_kType; sym_kUses; sym_kVar; sym_kWhile; sym_kWith]].

(** State 743. *)
Definition ts_parse_table_743 : parse_row :=
  [STATE 1204 [sym__procAttribute]; STATE 15235 [sym_procAttribute]; STATE 817 [sym_procExternal;
   aux_sym_declVar_repeat2]; ACTIONS 5134 [anon_sym_SEMI; anon_sym_COMMA];
   ACTIONS 5136 [anon_sym_LBRACK]; ACTIONS 5139 [anon_sym_LPAREN];
   ACTIONS 5134 [aux_sym__literalString_token1; anon_sym_POUND];
   ACTIONS 5139 [aux_sym__literalInt_token1]; ACTIONS 5134 [aux_sym__literalInt_token2;
   aux_sym__literalInt_token3]; ACTIONS 5139 [aux_sym__literalFloat_token1];
   ACTIONS 5134 [aux_sym_ppUsesBlock_token1; aux_sym_ppUsesBlock_token2;
   aux_sym_ppUsesBlock_token3]; ACTIONS 5139 [sym_kAdd; sym_kSub]; ACTIONS 5134 [sym_kAt;
   sym_kTrue; sym_kFalse]; ACTIONS 3 [sym__space]; ACTIONS 5 [sym_ppDirective];
   ACTIONS 3 [sym_comment]; ACTIONS 5134 [sym_ppFragmentExpr; sym__literalStringMultiline;
   sym_identifier]; ACTIONS 5141 [sym_kDefault; sym_kNodefault]; ACTIONS 5144 [sym_kDispId];
   ACTIONS 5134 [sym_kGeneric; sym_kSpecialize; sym_kOperator]; ACTIONS 5147 [sym_kPublic];
   ACTIONS 5141 [sym_kStatic; sym_kVirtual; sym_kAbstract; sym_kDynamic; sym_kOverride;
   sym_kOverload; sym_kReintroduce; sym_kStdcall; sym_kCdecl; sym_kCppdecl; sym_kPascal;
   sym_kRegister; sym_kMwpascal]; ACTIONS 3438 [sym_kExternal]; ACTIONS 5150 [sym_kMessage];
   ACTIONS 5153 [sym_kDeprecated]; ACTIONS 5141 [sym_kExperimental; sym_kPlatform;
   sym_kUnimplemented; sym_kCvar]; ACTIONS 5156 [sym_kExport]; ACTIONS 5141 [sym_kFar; sym_kNear;
   sym_kSafecall; sym_kAssembler; sym_kNostackframe; sym_kInterrupt; sym_kNoreturn; sym_kIocheck;
   sym_kLocal; sym_kHardfloat; sym_kSoftfloat; sym_kMs_abi_default; sym_kMs_abi_cdecl;
   sym_kSaveregisters; sym_kSysv_abi_default; sym_kSysv_abi_cdecl; sym_kVectorcall; sym_kVarargs;
   sym_kWinapi]; ACTIONS 5159 [sym_kAlias]; ACTIONS 5134 [sym_kAsm; sym_kBegin; sym_kCase;
   sym_kClass; sym_kConst; sym_kConstructor; sym_kDestructor; sym_kExports; sym_kFor;
   sym_kFunction; sym_kGoto; sym_kIf; sym_kInherited]; ACTIONS 1016 [sym_kInline];
   ACTIONS 5134 [sym_kLabel; sym_kNil; sym_kNot; sym_kProcedure; sym_kProperty; sym_kRaise;
   sym_kRepeat; sym_kResourcestring; sym_kString; sym_kThreadvar; sym_kTry; sym_kType; sym_kUses;
   sym_kVar; sym_kWhile; sym_kWith]].

(** State 744. *)
Definition ts_parse_table_744 : parse_row :=
  [STATE 1204 [sym__procAttribute]; STATE 15235 [sym_procAttribute]; STATE 817 [sym_procExternal;
   aux_sym_declVar_repeat2]; ACTIONS 5162 [anon_sym_SEMI; anon_sym_COMMA];
   ACTIONS 5164 [anon_sym_LBRACK]; ACTIONS 5167 [anon_sym_LPAREN];
   ACTIONS 5162 [aux_sym__literalString_token1; anon_sym_POUND];
   ACTIONS 5167 [aux_sym__literalInt_token1]; ACTIONS 5162 [aux_sym__literalInt_token2;
   aux_sym__literalInt_token3]; ACTIONS 5167 [aux_sym__literalFloat_token1];
   ACTIONS 5162 [aux_sym_ppUsesBlock_token1; aux_sym_ppUsesBlock_token2;
   aux_sym_ppUsesBlock_token3]; ACTIONS 5167 [sym_kAdd; sym_kSub]; ACTIONS 5162 [sym_kAt;
   sym_kTrue; sym_kFalse]; ACTIONS 3 [sym__space]; ACTIONS 5 [sym_ppDirective];
   ACTIONS 3 [sym_comment]; ACTIONS 5162 [sym_ppFragmentExpr; sym__literalStringMultiline;
   sym_identifier]; ACTIONS 5169 [sym_kDefault; sym_kNodefault]; ACTIONS 5172 [sym_kDispId];
   ACTIONS 5162 [sym_kGeneric; sym_kSpecialize; sym_kOperator]; ACTIONS 5175 [sym_kPublic];
   ACTIONS 5169 [sym_kStatic; sym_kVirtual; sym_kAbstract; sym_kDynamic; sym_kOverride;
   sym_kOverload; sym_kReintroduce; sym_kStdcall; sym_kCdecl; sym_kCppdecl; sym_kPascal;
   sym_kRegister; sym_kMwpascal]; ACTIONS 3438 [sym_kExternal]; ACTIONS 5178 [sym_kMessage];
   ACTIONS 5181 [sym_kDeprecated]; ACTIONS 5169 [sym_kExperimental; sym_kPlatform;
   sym_kUnimplemented; sym_kCvar]; ACTIONS 5184 [sym_kExport]; ACTIONS 5169 [sym_kFar; sym_kNear;
   sym_kSafecall; sym_kAssembler; sym_kNostackframe; sym_kInterrupt; sym_kNoreturn; sym_kIocheck;
   sym_kLocal; sym_kHardfloat; sym_kSoftfloat; sym_kMs_abi_default; sym_kMs_abi_cdecl;
   sym_kSaveregisters; sym_kSysv_abi_default; sym_kSysv_abi_cdecl; sym_kVectorcall; sym_kVarargs;
   sym_kWinapi]; ACTIONS 5187 [sym_kAlias]; ACTIONS 5162 [sym_kAsm; sym_kBegin; sym_kCase;
   sym_kClass; sym_kConst; sym_kConstructor; sym_kDestructor; sym_kExports; sym_kFor;
   sym_kFunction; sym_kGoto; sym_kIf; sym_kInherited]; ACTIONS 1016 [sym_kInline];
   ACTIONS 5162 [sym_kLabel; sym_kNil; sym_kNot; sym_kProcedure; sym_kProperty; sym_kRaise;
   sym_kRepeat; sym_kResourcestring; sym_kString; sym_kThreadvar; sym_kTry; sym_kType; sym_kUses;
   sym_kVar; sym_kWhile; sym_kWith]].

(** State 745. *)
Definition ts_parse_table_745 : parse_row :=
  [STATE 2921 [sym__ppIf]; STATE 1214 [sym__procAttributeNoExt];
   STATE 1215 [sym__procAttributesPp]; STATE 15691 [sym_procAttribute];
   STATE 794 [aux_sym__declProc_repeat1]; ACTIONS 5190 [anon_sym_SEMI; anon_sym_COMMA];
   ACTIONS 5192 [anon_sym_LBRACK]; ACTIONS 5195 [anon_sym_LPAREN];
   ACTIONS 5190 [aux_sym__literalString_token1; anon_sym_POUND];
   ACTIONS 5195 [aux_sym__literalInt_token1]; ACTIONS 5190 [aux_sym__literalInt_token2;
   aux_sym__literalInt_token3]; ACTIONS 5195 [aux_sym__literalFloat_token1];
   ACTIONS 5197 [aux_sym_ppUsesBlock_token1]; ACTIONS 5190 [aux_sym_ppUsesBlock_token2;
   aux_sym_ppUsesBlock_token3]; ACTIONS 5195 [sym_kAdd; sym_kSub]; ACTIONS 5190 [sym_kAt;
   sym_kTrue; sym_kFalse]; ACTIONS 3 [sym__space]; ACTIONS 5 [sym_ppDirective];
   ACTIONS 3 [sym_comment]; ACTIONS 5190 [sym_ppFragmentExpr; sym__literalStringMultiline;
   sym_identifier]; ACTIONS 5200 [sym_kDefault; sym_kNodefault]; ACTIONS 5203 [sym_kDispId];
   ACTIONS 5190 [sym_kGeneric; sym_kSpecialize; sym_kOperator]; ACTIONS 5206 [sym_kPublic];
   ACTIONS 5200 [sym_kStatic; sym_kVirtual; sym_kAbstract; sym_kDynamic; sym_kOverride;
   sym_kOverload; sym_kReintroduce; sym_kStdcall; sym_kCdecl; sym_kCppdecl; sym_kPascal;
   sym_kRegister; sym_kMwpascal]; ACTIONS 5209 [sym_kMessage]; ACTIONS 5212 [sym_kDeprecated];
   ACTIONS 5200 [sym_kExperimental; sym_kPlatform; sym_kUnimplemented; sym_kCvar];
   ACTIONS 5215 [sym_kExport]; ACTIONS 5200 [sym_kFar; sym_kNear; sym_kSafecall; sym_kAssembler;
   sym_kNostackframe; sym_kInterrupt; sym_kNoreturn; sym_kIocheck; sym_kLocal; sym_kHardfloat;
   sym_kSoftfloat; sym_kMs_abi_default; sym_kMs_abi_cdecl; sym_kSaveregisters;
   sym_kSysv_abi_default; sym_kSysv_abi_cdecl; sym_kVectorcall; sym_kVarargs; sym_kWinapi];
   ACTIONS 5218 [sym_kAlias]; ACTIONS 5190 [sym_kAsm; sym_kBegin; sym_kCase; sym_kClass;
   sym_kConst; sym_kConstructor; sym_kDestructor; sym_kExports; sym_kFor; sym_kFunction;
   sym_kGoto; sym_kIf; sym_kInherited]; ACTIONS 1016 [sym_kInline]; ACTIONS 5190 [sym_kLabel;
   sym_kNil; sym_kNot; sym_kProcedure; sym_kProperty; sym_kRaise; sym_kRepeat;
   sym_kResourcestring; sym_kString; sym_kThreadvar; sym_kTry; sym_kType; sym_kUses; sym_kVar;
   sym_kWhile; sym_kWith]].

(** State 746. *)
Definition ts_parse_table_746 : parse_row :=
  [STATE 1204 [sym__procAttribute]; STATE 15235 [sym_procAttribute]; STATE 743 [sym_procExternal;
   aux_sym_declVar_repeat2]; ACTIONS 5221 [anon_sym_SEMI; anon_sym_COMMA];
   ACTIONS 5223 [anon_sym_LBRACK]; ACTIONS 5226 [anon_sym_LPAREN];
   ACTIONS 5221 [aux_sym__literalString_token1; anon_sym_POUND];
   ACTIONS 5226 [aux_sym__literalInt_token1]; ACTIONS 5221 [aux_sym__literalInt_token2;
   aux_sym__literalInt_token3]; ACTIONS 5226 [aux_sym__literalFloat_token1];
   ACTIONS 5221 [aux_sym_ppUsesBlock_token1; aux_sym_ppUsesBlock_token2;
   aux_sym_ppUsesBlock_token3]; ACTIONS 5226 [sym_kAdd; sym_kSub]; ACTIONS 5221 [sym_kAt;
   sym_kTrue; sym_kFalse]; ACTIONS 3 [sym__space]; ACTIONS 5 [sym_ppDirective];
   ACTIONS 3 [sym_comment]; ACTIONS 5221 [sym_ppFragmentExpr; sym__literalStringMultiline;
   sym_identifier]; ACTIONS 5228 [sym_kDefault; sym_kNodefault]; ACTIONS 5231 [sym_kDispId];
   ACTIONS 5221 [sym_kGeneric; sym_kSpecialize; sym_kOperator]; ACTIONS 5234 [sym_kPublic];
   ACTIONS 5228 [sym_kStatic; sym_kVirtual; sym_kAbstract; sym_kDynamic; sym_kOverride;
   sym_kOverload; sym_kReintroduce; sym_kStdcall; sym_kCdecl; sym_kCppdecl; sym_kPascal;
   sym_kRegister; sym_kMwpascal]; ACTIONS 3438 [sym_kExternal]; ACTIONS 5237 [sym_kMessage];
   ACTIONS 5240 [sym_kDeprecated]; ACTIONS 5228 [sym_kExperimental; sym_kPlatform;
   sym_kUnimplemented; sym_kCvar]; ACTIONS 5243 [sym_kExport]; ACTIONS 5228 [sym_kFar; sym_kNear;
   sym_kSafecall; sym_kAssembler; sym_kNostackframe; sym_kInterrupt; sym_kNoreturn; sym_kIocheck;
   sym_kLocal; sym_kHardfloat; sym_kSoftfloat; sym_kMs_abi_default; sym_kMs_abi_cdecl;
   sym_kSaveregisters; sym_kSysv_abi_default; sym_kSysv_abi_cdecl; sym_kVectorcall; sym_kVarargs;
   sym_kWinapi]; ACTIONS 5246 [sym_kAlias]; ACTIONS 5221 [sym_kAsm; sym_kBegin; sym_kCase;
   sym_kClass; sym_kConst; sym_kConstructor; sym_kDestructor; sym_kExports; sym_kFor;
   sym_kFunction; sym_kGoto; sym_kIf; sym_kInherited]; ACTIONS 1016 [sym_kInline];
   ACTIONS 5221 [sym_kLabel; sym_kNil; sym_kNot; sym_kProcedure; sym_kProperty; sym_kRaise;
   sym_kRepeat; sym_kResourcestring; sym_kString; sym_kThreadvar; sym_kTry; sym_kType; sym_kUses;
   sym_kVar; sym_kWhile; sym_kWith]].

(** State 747. *)
Definition ts_parse_table_747 : parse_row :=
  [STATE 1204 [sym__procAttribute]; STATE 15235 [sym_procAttribute]; STATE 817 [sym_procExternal;
   aux_sym_declVar_repeat2]; ACTIONS 5249 [anon_sym_SEMI; anon_sym_COMMA];
   ACTIONS 5251 [anon_sym_LBRACK]; ACTIONS 5254 [anon_sym_LPAREN];
   ACTIONS 5249 [aux_sym__literalString_token1; anon_sym_POUND];
   ACTIONS 5254 [aux_sym__literalInt_token1]; ACTIONS 5249 [aux_sym__literalInt_token2;
   aux_sym__literalInt_token3]; ACTIONS 5254 [aux_sym__literalFloat_token1];
   ACTIONS 5249 [aux_sym_ppUsesBlock_token1; aux_sym_ppUsesBlock_token2;
   aux_sym_ppUsesBlock_token3]; ACTIONS 5254 [sym_kAdd; sym_kSub]; ACTIONS 5249 [sym_kAt;
   sym_kTrue; sym_kFalse]; ACTIONS 3 [sym__space]; ACTIONS 5 [sym_ppDirective];
   ACTIONS 3 [sym_comment]; ACTIONS 5249 [sym_ppFragmentExpr; sym__literalStringMultiline;
   sym_identifier]; ACTIONS 5256 [sym_kDefault; sym_kNodefault]; ACTIONS 5259 [sym_kDispId];
   ACTIONS 5249 [sym_kGeneric; sym_kSpecialize; sym_kOperator]; ACTIONS 5262 [sym_kPublic];
   ACTIONS 5256 [sym_kStatic; sym_kVirtual; sym_kAbstract; sym_kDynamic; sym_kOverride;
   sym_kOverload; sym_kReintroduce; sym_kStdcall; sym_kCdecl; sym_kCppdecl; sym_kPascal;
   sym_kRegister; sym_kMwpascal]; ACTIONS 3438 [sym_kExternal]; ACTIONS 5265 [sym_kMessage];
   ACTIONS 5268 [sym_kDeprecated]; ACTIONS 5256 [sym_kExperimental; sym_kPlatform;
   sym_kUnimplemented; sym_kCvar]; ACTIONS 5271 [sym_kExport]; ACTIONS 5256 [sym_kFar; sym_kNear;
   sym_kSafecall; sym_kAssembler; sym_kNostackframe; sym_kInterrupt; sym_kNoreturn; sym_kIocheck;
   sym_kLocal; sym_kHardfloat; sym_kSoftfloat; sym_kMs_abi_default; sym_kMs_abi_cdecl;
   sym_kSaveregisters; sym_kSysv_abi_default; sym_kSysv_abi_cdecl; sym_kVectorcall; sym_kVarargs;
   sym_kWinapi]; ACTIONS 5274 [sym_kAlias]; ACTIONS 5249 [sym_kAsm; sym_kBegin; sym_kCase;
   sym_kClass; sym_kConst; sym_kConstructor; sym_kDestructor; sym_kExports; sym_kFor;
   sym_kFunction; sym_kGoto; sym_kIf; sym_kInherited]; ACTIONS 1016 [sym_kInline];
   ACTIONS 5249 [sym_kLabel; sym_kNil; sym_kNot; sym_kProcedure; sym_kProperty; sym_kRaise;
   sym_kRepeat; sym_kResourcestring; sym_kString; sym_kThreadvar; sym_kTry; sym_kType; sym_kUses;
   sym_kVar; sym_kWhile; sym_kWith]].

(** State 748. *)
Definition ts_parse_table_748 : parse_row :=
  [STATE 2921 [sym__ppIf]; STATE 1214 [sym__procAttributeNoExt];
   STATE 1215 [sym__procAttributesPp]; STATE 15691 [sym_procAttribute];
   STATE 777 [aux_sym__declProc_repeat1]; ACTIONS 5277 [anon_sym_SEMI; anon_sym_COMMA];
   ACTIONS 5279 [anon_sym_LBRACK]; ACTIONS 5282 [anon_sym_LPAREN];
   ACTIONS 5277 [aux_sym__literalString_token1; anon_sym_POUND];
   ACTIONS 5282 [aux_sym__literalInt_token1]; ACTIONS 5277 [aux_sym__literalInt_token2;
   aux_sym__literalInt_token3]; ACTIONS 5282 [aux_sym__literalFloat_token1];
   ACTIONS 5284 [aux_sym_ppUsesBlock_token1]; ACTIONS 5277 [aux_sym_ppUsesBlock_token2;
   aux_sym_ppUsesBlock_token3]; ACTIONS 5282 [sym_kAdd; sym_kSub]; ACTIONS 5277 [sym_kAt;
   sym_kTrue; sym_kFalse]; ACTIONS 3 [sym__space]; ACTIONS 5 [sym_ppDirective];
   ACTIONS 3 [sym_comment]; ACTIONS 5277 [sym_ppFragmentExpr; sym__literalStringMultiline;
   sym_identifier]; ACTIONS 5287 [sym_kDefault; sym_kNodefault]; ACTIONS 5290 [sym_kDispId];
   ACTIONS 5277 [sym_kGeneric; sym_kSpecialize; sym_kOperator]; ACTIONS 5293 [sym_kPublic];
   ACTIONS 5287 [sym_kStatic; sym_kVirtual; sym_kAbstract; sym_kDynamic; sym_kOverride;
   sym_kOverload; sym_kReintroduce; sym_kStdcall; sym_kCdecl; sym_kCppdecl; sym_kPascal;
   sym_kRegister; sym_kMwpascal]; ACTIONS 5296 [sym_kMessage]; ACTIONS 5299 [sym_kDeprecated];
   ACTIONS 5287 [sym_kExperimental; sym_kPlatform; sym_kUnimplemented; sym_kCvar];
   ACTIONS 5302 [sym_kExport]; ACTIONS 5287 [sym_kFar; sym_kNear; sym_kSafecall; sym_kAssembler;
   sym_kNostackframe; sym_kInterrupt; sym_kNoreturn; sym_kIocheck; sym_kLocal; sym_kHardfloat;
   sym_kSoftfloat; sym_kMs_abi_default; sym_kMs_abi_cdecl; sym_kSaveregisters;
   sym_kSysv_abi_default; sym_kSysv_abi_cdecl; sym_kVectorcall; sym_kVarargs; sym_kWinapi];
   ACTIONS 5305 [sym_kAlias]; ACTIONS 5277 [sym_kAsm; sym_kBegin; sym_kCase; sym_kClass;
   sym_kConst; sym_kConstructor; sym_kDestructor; sym_kExports; sym_kFor; sym_kFunction;
   sym_kGoto; sym_kIf; sym_kInherited]; ACTIONS 1016 [sym_kInline]; ACTIONS 5277 [sym_kLabel;
   sym_kNil; sym_kNot; sym_kProcedure; sym_kProperty; sym_kRaise; sym_kRepeat;
   sym_kResourcestring; sym_kString; sym_kThreadvar; sym_kTry; sym_kType; sym_kUses; sym_kVar;
   sym_kWhile; sym_kWith]].

(** State 749. *)
Definition ts_parse_table_749 : parse_row :=
  [STATE 1204 [sym__procAttribute]; STATE 15235 [sym_procAttribute]; STATE 744 [sym_procExternal;
   aux_sym_declVar_repeat2]; ACTIONS 5308 [anon_sym_SEMI; anon_sym_COMMA];
   ACTIONS 5310 [anon_sym_LBRACK]; ACTIONS 5313 [anon_sym_LPAREN];
   ACTIONS 5308 [aux_sym__literalString_token1; anon_sym_POUND];
   ACTIONS 5313 [aux_sym__literalInt_token1]; ACTIONS 5308 [aux_sym__literalInt_token2;
   aux_sym__literalInt_token3]; ACTIONS 5313 [aux_sym__literalFloat_token1];
   ACTIONS 5308 [aux_sym_ppUsesBlock_token1; aux_sym_ppUsesBlock_token2;
   aux_sym_ppUsesBlock_token3]; ACTIONS 5313 [sym_kAdd; sym_kSub]; ACTIONS 5308 [sym_kAt;
   sym_kTrue; sym_kFalse]; ACTIONS 3 [sym__space]; ACTIONS 5 [sym_ppDirective];
   ACTIONS 3 [sym_comment]; ACTIONS 5308 [sym_ppFragmentExpr; sym__literalStringMultiline;
   sym_identifier]; ACTIONS 5315 [sym_kDefault; sym_kNodefault]; ACTIONS 5318 [sym_kDispId];
   ACTIONS 5308 [sym_kGeneric; sym_kSpecialize; sym_kOperator]; ACTIONS 5321 [sym_kPublic];
   ACTIONS 5315 [sym_kStatic; sym_kVirtual; sym_kAbstract; sym_kDynamic; sym_kOverride;
   sym_kOverload; sym_kReintroduce; sym_kStdcall; sym_kCdecl; sym_kCppdecl; sym_kPascal;
   sym_kRegister; sym_kMwpascal]; ACTIONS 3438 [sym_kExternal]; ACTIONS 5324 [sym_kMessage];
   ACTIONS 5327 [sym_kDeprecated]; ACTIONS 5315 [sym_kExperimental; sym_kPlatform;
   sym_kUnimplemented; sym_kCvar]; ACTIONS 5330 [sym_kExport]; ACTIONS 5315 [sym_kFar; sym_kNear;
   sym_kSafecall; sym_kAssembler; sym_kNostackframe; sym_kInterrupt; sym_kNoreturn; sym_kIocheck;
   sym_kLocal; sym_kHardfloat; sym_kSoftfloat; sym_kMs_abi_default; sym_kMs_abi_cdecl;
   sym_kSaveregisters; sym_kSysv_abi_default; sym_kSysv_abi_cdecl; sym_kVectorcall; sym_kVarargs;
   sym_kWinapi]; ACTIONS 5333 [sym_kAlias]; ACTIONS 5308 [sym_kAsm; sym_kBegin; sym_kCase;
   sym_kClass; sym_kConst; sym_kConstructor; sym_kDestructor; sym_kExports; sym_kFor;
   sym_kFunction; sym_kGoto; sym_kIf; sym_kInherited]; ACTIONS 1016 [sym_kInline];
   ACTIONS 5308 [sym_kLabel; sym_kNil; sym_kNot; sym_kProcedure; sym_kProperty; sym_kRaise;
   sym_kRepeat; sym_kResourcestring; sym_kString; sym_kThreadvar; sym_kTry; sym_kType; sym_kUses;
   sym_kVar; sym_kWhile; sym_kWith]].

(** State 750. *)
Definition ts_parse_table_750 : parse_row :=
  [STATE 2921 [sym__ppIf]; STATE 1214 [sym__procAttributeNoExt];
   STATE 1215 [sym__procAttributesPp]; STATE 15691 [sym_procAttribute];
   STATE 777 [aux_sym__declProc_repeat1]; ACTIONS 3133 [anon_sym_SEMI; anon_sym_COMMA];
   ACTIONS 5336 [anon_sym_LBRACK]; ACTIONS 3138 [anon_sym_LPAREN];
   ACTIONS 3133 [aux_sym__literalString_token1; anon_sym_POUND];
   ACTIONS 3138 [aux_sym__literalInt_token1]; ACTIONS 3133 [aux_sym__literalInt_token2;
   aux_sym__literalInt_token3]; ACTIONS 3138 [aux_sym__literalFloat_token1];
   ACTIONS 3140 [aux_sym_ppUsesBlock_token1]; ACTIONS 3133 [aux_sym_ppUsesBlock_token2;
   aux_sym_ppUsesBlock_token3]; ACTIONS 3138 [sym_kAdd; sym_kSub]; ACTIONS 3133 [sym_kAt;
   sym_kTrue; sym_kFalse]; ACTIONS 3 [sym__space]; ACTIONS 5 [sym_ppDirective];
   ACTIONS 3 [sym_comment]; ACTIONS 3133 [sym_ppFragmentExpr; sym__literalStringMultiline;
   sym_identifier]; ACTIONS 3143 [sym_kDefault; sym_kNodefault]; ACTIONS 3146 [sym_kDispId];
   ACTIONS 3133 [sym_kGeneric; sym_kSpecialize; sym_kOperator]; ACTIONS 3149 [sym_kPublic];
   ACTIONS 3143 [sym_kStatic; sym_kVirtual; sym_kAbstract; sym_kDynamic; sym_kOverride;
   sym_kOverload; sym_kReintroduce; sym_kStdcall; sym_kCdecl; sym_kCppdecl; sym_kPascal;
   sym_kRegister; sym_kMwpascal]; ACTIONS 3152 [sym_kMessage]; ACTIONS 3155 [sym_kDeprecated];
   ACTIONS 3143 [sym_kExperimental; sym_kPlatform; sym_kUnimplemented; sym_kCvar];
   ACTIONS 3158 [sym_kExport]; ACTIONS 3143 [sym_kFar; sym_kNear; sym_kSafecall; sym_kAssembler;
   sym_kNostackframe; sym_kInterrupt; sym_kNoreturn; sym_kIocheck; sym_kLocal; sym_kHardfloat;
   sym_kSoftfloat; sym_kMs_abi_default; sym_kMs_abi_cdecl; sym_kSaveregisters;
   sym_kSysv_abi_default; sym_kSysv_abi_cdecl; sym_kVectorcall; sym_kVarargs; sym_kWinapi];
   ACTIONS 3161 [sym_kAlias]; ACTIONS 3133 [sym_kAsm; sym_kBegin; sym_kCase; sym_kClass;
   sym_kConst; sym_kConstructor; sym_kDestructor; sym_kExports; sym_kFor; sym_kFunction;
   sym_kGoto; sym_kIf; sym_kInherited]; ACTIONS 1016 [sym_kInline]; ACTIONS 3133 [sym_kLabel;
   sym_kNil; sym_kNot; sym_kProcedure; sym_kProperty; sym_kRaise; sym_kRepeat;
   sym_kResourcestring; sym_kString; sym_kThreadvar; sym_kTry; sym_kType; sym_kUses; sym_kVar;
   sym_kWhile; sym_kWith]].

(** State 751. *)
Definition ts_parse_table_751 : parse_row :=
  [STATE 2921 [sym__ppIf]; STATE 1214 [sym__procAttributeNoExt];
   STATE 1215 [sym__procAttributesPp]; STATE 15691 [sym_procAttribute];
   STATE 841 [aux_sym__declProc_repeat1]; ACTIONS 5339 [anon_sym_SEMI; anon_sym_COMMA];
   ACTIONS 5341 [anon_sym_LBRACK]; ACTIONS 5344 [anon_sym_LPAREN];
   ACTIONS 5339 [aux_sym__literalString_token1; anon_sym_POUND];
   ACTIONS 5344 [aux_sym__literalInt_token1]; ACTIONS 5339 [aux_sym__literalInt_token2;
   aux_sym__literalInt_token3]; ACTIONS 5344 [aux_sym__literalFloat_token1];
   ACTIONS 5346 [aux_sym_ppUsesBlock_token1]; ACTIONS 5339 [aux_sym_ppUsesBlock_token2;
   aux_sym_ppUsesBlock_token3]; ACTIONS 5344 [sym_kAdd; sym_kSub]; ACTIONS 5339 [sym_kAt;
   sym_kTrue; sym_kFalse]; ACTIONS 3 [sym__space]; ACTIONS 5 [sym_ppDirective];
   ACTIONS 3 [sym_comment]; ACTIONS 5339 [sym_ppFragmentExpr; sym__literalStringMultiline;
   sym_identifier]; ACTIONS 5349 [sym_kDefault; sym_kNodefault]; ACTIONS 5352 [sym_kDispId];
   ACTIONS 5339 [sym_kGeneric; sym_kSpecialize; sym_kOperator]; ACTIONS 5355 [sym_kPublic];
   ACTIONS 5349 [sym_kStatic; sym_kVirtual; sym_kAbstract; sym_kDynamic; sym_kOverride;
   sym_kOverload; sym_kReintroduce; sym_kStdcall; sym_kCdecl; sym_kCppdecl; sym_kPascal;
   sym_kRegister; sym_kMwpascal]; ACTIONS 5358 [sym_kMessage]; ACTIONS 5361 [sym_kDeprecated];
   ACTIONS 5349 [sym_kExperimental; sym_kPlatform; sym_kUnimplemented; sym_kCvar];
   ACTIONS 5364 [sym_kExport]; ACTIONS 5349 [sym_kFar; sym_kNear; sym_kSafecall; sym_kAssembler;
   sym_kNostackframe; sym_kInterrupt; sym_kNoreturn; sym_kIocheck; sym_kLocal; sym_kHardfloat;
   sym_kSoftfloat; sym_kMs_abi_default; sym_kMs_abi_cdecl; sym_kSaveregisters;
   sym_kSysv_abi_default; sym_kSysv_abi_cdecl; sym_kVectorcall; sym_kVarargs; sym_kWinapi];
   ACTIONS 5367 [sym_kAlias]; ACTIONS 5339 [sym_kAsm; sym_kBegin; sym_kCase; sym_kClass;
   sym_kConst; sym_kConstructor; sym_kDestructor; sym_kExports; sym_kFor; sym_kFunction;
   sym_kGoto; sym_kIf; sym_kInherited]; ACTIONS 1016 [sym_kInline]; ACTIONS 5339 [sym_kLabel;
   sym_kNil; sym_kNot; sym_kProcedure; sym_kProperty; sym_kRaise; sym_kRepeat;
   sym_kResourcestring; sym_kString; sym_kThreadvar; sym_kTry; sym_kType; sym_kUses; sym_kVar;
   sym_kWhile; sym_kWith]].

(** State 752. *)
Definition ts_parse_table_752 : parse_row :=
  [STATE 2921 [sym__ppIf]; STATE 1214 [sym__procAttributeNoExt];
   STATE 1215 [sym__procAttributesPp]; STATE 15691 [sym_procAttribute];
   STATE 789 [aux_sym__declProc_repeat1]; ACTIONS 2204 [anon_sym_SEMI; anon_sym_COMMA];
   ACTIONS 5370 [anon_sym_LBRACK]; ACTIONS 2209 [anon_sym_LPAREN];
   ACTIONS 2204 [aux_sym__literalString_token1; anon_sym_POUND];
   ACTIONS 2209 [aux_sym__literalInt_token1]; ACTIONS 2204 [aux_sym__literalInt_token2;
   aux_sym__literalInt_token3]; ACTIONS 2209 [aux_sym__literalFloat_token1];
   ACTIONS 2211 [aux_sym_ppUsesBlock_token1]; ACTIONS 2204 [aux_sym_ppUsesBlock_token2;
   aux_sym_ppUsesBlock_token3]; ACTIONS 2209 [sym_kAdd; sym_kSub]; ACTIONS 2204 [sym_kAt;
   sym_kTrue; sym_kFalse]; ACTIONS 3 [sym__space]; ACTIONS 5 [sym_ppDirective];
   ACTIONS 3 [sym_comment]; ACTIONS 2204 [sym_ppFragmentExpr; sym__literalStringMultiline;
   sym_identifier]; ACTIONS 2214 [sym_kDefault; sym_kNodefault]; ACTIONS 2217 [sym_kDispId];
   ACTIONS 2204 [sym_kGeneric; sym_kSpecialize; sym_kOperator]; ACTIONS 2220 [sym_kPublic];
   ACTIONS 2214 [sym_kStatic; sym_kVirtual; sym_kAbstract; sym_kDynamic; sym_kOverride;
   sym_kOverload; sym_kReintroduce; sym_kStdcall; sym_kCdecl; sym_kCppdecl; sym_kPascal;
   sym_kRegister; sym_kMwpascal]; ACTIONS 2223 [sym_kMessage]; ACTIONS 2226 [sym_kDeprecated];
   ACTIONS 2214 [sym_kExperimental; sym_kPlatform; sym_kUnimplemented; sym_kCvar];
   ACTIONS 2229 [sym_kExport]; ACTIONS 2214 [sym_kFar; sym_kNear; sym_kSafecall; sym_kAssembler;
   sym_kNostackframe; sym_kInterrupt; sym_kNoreturn; sym_kIocheck; sym_kLocal; sym_kHardfloat;
   sym_kSoftfloat; sym_kMs_abi_default; sym_kMs_abi_cdecl; sym_kSaveregisters;
   sym_kSysv_abi_default; sym_kSysv_abi_cdecl; sym_kVectorcall; sym_kVarargs; sym_kWinapi];
   ACTIONS 2232 [sym_kAlias]; ACTIONS 2204 [sym_kAsm; sym_kBegin; sym_kCase; sym_kClass;
   sym_kConst; sym_kConstructor; sym_kDestructor; sym_kExports; sym_kFor; sym_kFunction;
   sym_kGoto; sym_kIf; sym_kInherited]; ACTIONS 1016 [sym_kInline]; ACTIONS 2204 [sym_kLabel;
   sym_kNil; sym_kNot; sym_kProcedure; sym_kProperty; sym_kRaise; sym_kRepeat;
   sym_kResourcestring; sym_kString; sym_kThreadvar; sym_kTry; sym_kType; sym_kUses; sym_kVar;
   sym_kWhile; sym_kWith]].

(** State 753. *)
Definition ts_parse_table_753 : parse_row :=
  [STATE 1204 [sym__procAttribute]; STATE 15235 [sym_procAttribute]; STATE 817 [sym_procExternal;
   aux_sym_declVar_repeat2]; ACTIONS 5373 [anon_sym_SEMI; anon_sym_COMMA];
   ACTIONS 5375 [anon_sym_LBRACK]; ACTIONS 5378 [anon_sym_LPAREN];
   ACTIONS 5373 [aux_sym__literalString_token1; anon_sym_POUND];
   ACTIONS 5378 [aux_sym__literalInt_token1]; ACTIONS 5373 [aux_sym__literalInt_token2;
   aux_sym__literalInt_token3]; ACTIONS 5378 [aux_sym__literalFloat_token1];
   ACTIONS 5373 [aux_sym_ppUsesBlock_token1; aux_sym_ppUsesBlock_token2;
   aux_sym_ppUsesBlock_token3]; ACTIONS 5378 [sym_kAdd; sym_kSub]; ACTIONS 5373 [sym_kAt;
   sym_kTrue; sym_kFalse]; ACTIONS 3 [sym__space]; ACTIONS 5 [sym_ppDirective];
   ACTIONS 3 [sym_comment]; ACTIONS 5373 [sym_ppFragmentExpr; sym__literalStringMultiline;
   sym_identifier]; ACTIONS 5380 [sym_kDefault; sym_kNodefault]; ACTIONS 5383 [sym_kDispId];
   ACTIONS 5373 [sym_kGeneric; sym_kSpecialize; sym_kOperator]; ACTIONS 5386 [sym_kPublic];
   ACTIONS 5380 [sym_kStatic; sym_kVirtual; sym_kAbstract; sym_kDynamic; sym_kOverride;
   sym_kOverload; sym_kReintroduce; sym_kStdcall; sym_kCdecl; sym_kCppdecl; sym_kPascal;
   sym_kRegister; sym_kMwpascal]; ACTIONS 3438 [sym_kExternal]; ACTIONS 5389 [sym_kMessage];
   ACTIONS 5392 [sym_kDeprecated]; ACTIONS 5380 [sym_kExperimental; sym_kPlatform;
   sym_kUnimplemented; sym_kCvar]; ACTIONS 5395 [sym_kExport]; ACTIONS 5380 [sym_kFar; sym_kNear;
   sym_kSafecall; sym_kAssembler; sym_kNostackframe; sym_kInterrupt; sym_kNoreturn; sym_kIocheck;
   sym_kLocal; sym_kHardfloat; sym_kSoftfloat; sym_kMs_abi_default; sym_kMs_abi_cdecl;
   sym_kSaveregisters; sym_kSysv_abi_default; sym_kSysv_abi_cdecl; sym_kVectorcall; sym_kVarargs;
   sym_kWinapi]; ACTIONS 5398 [sym_kAlias]; ACTIONS 5373 [sym_kAsm; sym_kBegin; sym_kCase;
   sym_kClass; sym_kConst; sym_kConstructor; sym_kDestructor; sym_kExports; sym_kFor;
   sym_kFunction; sym_kGoto; sym_kIf; sym_kInherited]; ACTIONS 1016 [sym_kInline];
   ACTIONS 5373 [sym_kLabel; sym_kNil; sym_kNot; sym_kProcedure; sym_kProperty; sym_kRaise;
   sym_kRepeat; sym_kResourcestring; sym_kString; sym_kThreadvar; sym_kTry; sym_kType; sym_kUses;
   sym_kVar; sym_kWhile; sym_kWith]].

(** State 754. *)
Definition ts_parse_table_754 : parse_row :=
  [STATE 2921 [sym__ppIf]; STATE 1214 [sym__procAttributeNoExt];
   STATE 1215 [sym__procAttributesPp]; STATE 15691 [sym_procAttribute];
   STATE 777 [aux_sym__declProc_repeat1]; ACTIONS 5401 [anon_sym_SEMI; anon_sym_COMMA];
   ACTIONS 5403 [anon_sym_LBRACK]; ACTIONS 5406 [anon_sym_LPAREN];
   ACTIONS 5401 [aux_sym__literalString_token1; anon_sym_POUND];
   ACTIONS 5406 [aux_sym__literalInt_token1]; ACTIONS 5401 [aux_sym__literalInt_token2;
   aux_sym__literalInt_token3]; ACTIONS 5406 [aux_sym__literalFloat_token1];
   ACTIONS 5408 [aux_sym_ppUsesBlock_token1]; ACTIONS 5401 [aux_sym_ppUsesBlock_token2;
   aux_sym_ppUsesBlock_token3]; ACTIONS 5406 [sym_kAdd; sym_kSub]; ACTIONS 5401 [sym_kAt;
   sym_kTrue; sym_kFalse]; ACTIONS 3 [sym__space]; ACTIONS 5 [sym_ppDirective];
   ACTIONS 3 [sym_comment]; ACTIONS 5401 [sym_ppFragmentExpr; sym__literalStringMultiline;
   sym_identifier]; ACTIONS 5411 [sym_kDefault; sym_kNodefault]; ACTIONS 5414 [sym_kDispId];
   ACTIONS 5401 [sym_kGeneric; sym_kSpecialize; sym_kOperator]; ACTIONS 5417 [sym_kPublic];
   ACTIONS 5411 [sym_kStatic; sym_kVirtual; sym_kAbstract; sym_kDynamic; sym_kOverride;
   sym_kOverload; sym_kReintroduce; sym_kStdcall; sym_kCdecl; sym_kCppdecl; sym_kPascal;
   sym_kRegister; sym_kMwpascal]; ACTIONS 5420 [sym_kMessage]; ACTIONS 5423 [sym_kDeprecated];
   ACTIONS 5411 [sym_kExperimental; sym_kPlatform; sym_kUnimplemented; sym_kCvar];
   ACTIONS 5426 [sym_kExport]; ACTIONS 5411 [sym_kFar; sym_kNear; sym_kSafecall; sym_kAssembler;
   sym_kNostackframe; sym_kInterrupt; sym_kNoreturn; sym_kIocheck; sym_kLocal; sym_kHardfloat;
   sym_kSoftfloat; sym_kMs_abi_default; sym_kMs_abi_cdecl; sym_kSaveregisters;
   sym_kSysv_abi_default; sym_kSysv_abi_cdecl; sym_kVectorcall; sym_kVarargs; sym_kWinapi];
   ACTIONS 5429 [sym_kAlias]; ACTIONS 5401 [sym_kAsm; sym_kBegin; sym_kCase; sym_kClass;
   sym_kConst; sym_kConstructor; sym_kDestructor; sym_kExports; sym_kFor; sym_kFunction;
   sym_kGoto; sym_kIf; sym_kInherited]; ACTIONS 1016 [sym_kInline]; ACTIONS 5401 [sym_kLabel;
   sym_kNil; sym_kNot; sym_kProcedure; sym_kProperty; sym_kRaise; sym_kRepeat;
   sym_kResourcestring; sym_kString; sym_kThreadvar; sym_kTry; sym_kType; sym_kUses; sym_kVar;
   sym_kWhile; sym_kWith]].

(** State 755. *)
Definition ts_parse_table_755 : parse_row :=
  [STATE 2921 [sym__ppIf]; STATE 1214 [sym__procAttributeNoExt];
   STATE 1215 [sym__procAttributesPp]; STATE 15691 [sym_procAttribute];
   STATE 687 [aux_sym__declProc_repeat1]; ACTIONS 5432 [anon_sym_SEMI; anon_sym_COMMA];
   ACTIONS 5434 [anon_sym_LBRACK]; ACTIONS 5437 [anon_sym_LPAREN];
   ACTIONS 5432 [aux_sym__literalString_token1; anon_sym_POUND];
   ACTIONS 5437 [aux_sym__literalInt_token1]; ACTIONS 5432 [aux_sym__literalInt_token2;
   aux_sym__literalInt_token3]; ACTIONS 5437 [aux_sym__literalFloat_token1];
   ACTIONS 5439 [aux_sym_ppUsesBlock_token1]; ACTIONS 5432 [aux_sym_ppUsesBlock_token2;
   aux_sym_ppUsesBlock_token3]; ACTIONS 5437 [sym_kAdd; sym_kSub]; ACTIONS 5432 [sym_kAt;
   sym_kTrue; sym_kFalse]; ACTIONS 3 [sym__space]; ACTIONS 5 [sym_ppDirective];
   ACTIONS 3 [sym_comment]; ACTIONS 5432 [sym_ppFragmentExpr; sym__literalStringMultiline;
   sym_identifier]; ACTIONS 5442 [sym_kDefault; sym_kNodefault]; ACTIONS 5445 [sym_kDispId];
   ACTIONS 5432 [sym_kGeneric; sym_kSpecialize; sym_kOperator]; ACTIONS 5448 [sym_kPublic];
   ACTIONS 5442 [sym_kStatic; sym_kVirtual; sym_kAbstract; sym_kDynamic; sym_kOverride;
   sym_kOverload; sym_kReintroduce; sym_kStdcall; sym_kCdecl; sym_kCppdecl; sym_kPascal;
   sym_kRegister; sym_kMwpascal]; ACTIONS 5451 [sym_kMessage]; ACTIONS 5454 [sym_kDeprecated];
   ACTIONS 5442 [sym_kExperimental; sym_kPlatform; sym_kUnimplemented; sym_kCvar];
   ACTIONS 5457 [sym_kExport]; ACTIONS 5442 [sym_kFar; sym_kNear; sym_kSafecall; sym_kAssembler;
   sym_kNostackframe; sym_kInterrupt; sym_kNoreturn; sym_kIocheck; sym_kLocal; sym_kHardfloat;
   sym_kSoftfloat; sym_kMs_abi_default; sym_kMs_abi_cdecl; sym_kSaveregisters;
   sym_kSysv_abi_default; sym_kSysv_abi_cdecl; sym_kVectorcall; sym_kVarargs; sym_kWinapi];
   ACTIONS 5460 [sym_kAlias]; ACTIONS 5432 [sym_kAsm; sym_kBegin; sym_kCase; sym_kClass;
   sym_kConst; sym_kConstructor; sym_kDestructor; sym_kExports; sym_kFor; sym_kFunction;
   sym_kGoto; sym_kIf; sym_kInherited]; ACTIONS 1016 [sym_kInline]; ACTIONS 5432 [sym_kLabel;
   sym_kNil; sym_kNot; sym_kProcedure; sym_kProperty; sym_kRaise; sym_kRepeat;
   sym_kResourcestring; sym_kString; sym_kThreadvar; sym_kTry; sym_kType; sym_kUses; sym_kVar;
   sym_kWhile; sym_kWith]].

(** State 756. *)
Definition ts_parse_table_756 : parse_row :=
  [STATE 2921 [sym__ppIf]; STATE 1214 [sym__procAttributeNoExt];
   STATE 1215 [sym__procAttributesPp]; STATE 15691 [sym_procAttribute];
   STATE 738 [aux_sym__declProc_repeat1]; ACTIONS 2652 [anon_sym_SEMI; anon_sym_COMMA];
   ACTIONS 5463 [anon_sym_LBRACK]; ACTIONS 2657 [anon_sym_LPAREN];
   ACTIONS 2652 [aux_sym__literalString_token1; anon_sym_POUND];
   ACTIONS 2657 [aux_sym__literalInt_token1]; ACTIONS 2652 [aux_sym__literalInt_token2;
   aux_sym__literalInt_token3]; ACTIONS 2657 [aux_sym__literalFloat_token1];
   ACTIONS 2659 [aux_sym_ppUsesBlock_token1]; ACTIONS 2652 [aux_sym_ppUsesBlock_token2;
   aux_sym_ppUsesBlock_token3]; ACTIONS 2657 [sym_kAdd; sym_kSub]; ACTIONS 2652 [sym_kAt;
   sym_kTrue; sym_kFalse]; ACTIONS 3 [sym__space]; ACTIONS 5 [sym_ppDirective];
   ACTIONS 3 [sym_comment]; ACTIONS 2652 [sym_ppFragmentExpr; sym__literalStringMultiline;
   sym_identifier]; ACTIONS 2662 [sym_kDefault; sym_kNodefault]; ACTIONS 2665 [sym_kDispId];
   ACTIONS 2652 [sym_kGeneric; sym_kSpecialize; sym_kOperator]; ACTIONS 2668 [sym_kPublic];
   ACTIONS 2662 [sym_kStatic; sym_kVirtual; sym_kAbstract; sym_kDynamic; sym_kOverride;
   sym_kOverload; sym_kReintroduce; sym_kStdcall; sym_kCdecl; sym_kCppdecl; sym_kPascal;
   sym_kRegister; sym_kMwpascal]; ACTIONS 2671 [sym_kMessage]; ACTIONS 2674 [sym_kDeprecated];
   ACTIONS 2662 [sym_kExperimental; sym_kPlatform; sym_kUnimplemented; sym_kCvar];
   ACTIONS 2677 [sym_kExport]; ACTIONS 2662 [sym_kFar; sym_kNear; sym_kSafecall; sym_kAssembler;
   sym_kNostackframe; sym_kInterrupt; sym_kNoreturn; sym_kIocheck; sym_kLocal; sym_kHardfloat;
   sym_kSoftfloat; sym_kMs_abi_default; sym_kMs_abi_cdecl; sym_kSaveregisters;
   sym_kSysv_abi_default; sym_kSysv_abi_cdecl; sym_kVectorcall; sym_kVarargs; sym_kWinapi];
   ACTIONS 2680 [sym_kAlias]; ACTIONS 2652 [sym_kAsm; sym_kBegin; sym_kCase; sym_kClass;
   sym_kConst; sym_kConstructor; sym_kDestructor; sym_kExports; sym_kFor; sym_kFunction;
   sym_kGoto; sym_kIf; sym_kInherited]; ACTIONS 1016 [sym_kInline]; ACTIONS 2652 [sym_kLabel;
   sym_kNil; sym_kNot; sym_kProcedure; sym_kProperty; sym_kRaise; sym_kRepeat;
   sym_kResourcestring; sym_kString; sym_kThreadvar; sym_kTry; sym_kType; sym_kUses; sym_kVar;
   sym_kWhile; sym_kWith]].

(** State 757. *)
Definition ts_parse_table_757 : parse_row :=
  [STATE 2921 [sym__ppIf]; STATE 1214 [sym__procAttributeNoExt];
   STATE 1215 [sym__procAttributesPp]; STATE 15691 [sym_procAttribute];
   STATE 777 [aux_sym__declProc_repeat1]; ACTIONS 5466 [anon_sym_SEMI; anon_sym_COMMA];
   ACTIONS 5468 [anon_sym_LBRACK]; ACTIONS 5471 [anon_sym_LPAREN];
   ACTIONS 5466 [aux_sym__literalString_token1; anon_sym_POUND];
   ACTIONS 5471 [aux_sym__literalInt_token1]; ACTIONS 5466 [aux_sym__literalInt_token2;
   aux_sym__literalInt_token3]; ACTIONS 5471 [aux_sym__literalFloat_token1];
   ACTIONS 5473 [aux_sym_ppUsesBlock_token1]; ACTIONS 5466 [aux_sym_ppUsesBlock_token2;
   aux_sym_ppUsesBlock_token3]; ACTIONS 5471 [sym_kAdd; sym_kSub]; ACTIONS 5466 [sym_kAt;
   sym_kTrue; sym_kFalse]; ACTIONS 3 [sym__space]; ACTIONS 5 [sym_ppDirective];
   ACTIONS 3 [sym_comment]; ACTIONS 5466 [sym_ppFragmentExpr; sym__literalStringMultiline;
   sym_identifier]; ACTIONS 5476 [sym_kDefault; sym_kNodefault]; ACTIONS 5479 [sym_kDispId];
   ACTIONS 5466 [sym_kGeneric; sym_kSpecialize; sym_kOperator]; ACTIONS 5482 [sym_kPublic];
   ACTIONS 5476 [sym_kStatic; sym_kVirtual; sym_kAbstract; sym_kDynamic; sym_kOverride;
   sym_kOverload; sym_kReintroduce; sym_kStdcall; sym_kCdecl; sym_kCppdecl; sym_kPascal;
   sym_kRegister; sym_kMwpascal]; ACTIONS 5485 [sym_kMessage]; ACTIONS 5488 [sym_kDeprecated];
   ACTIONS 5476 [sym_kExperimental; sym_kPlatform; sym_kUnimplemented; sym_kCvar];
   ACTIONS 5491 [sym_kExport]; ACTIONS 5476 [sym_kFar; sym_kNear; sym_kSafecall; sym_kAssembler;
   sym_kNostackframe; sym_kInterrupt; sym_kNoreturn; sym_kIocheck; sym_kLocal; sym_kHardfloat;
   sym_kSoftfloat; sym_kMs_abi_default; sym_kMs_abi_cdecl; sym_kSaveregisters;
   sym_kSysv_abi_default; sym_kSysv_abi_cdecl; sym_kVectorcall; sym_kVarargs; sym_kWinapi];
   ACTIONS 5494 [sym_kAlias]; ACTIONS 5466 [sym_kAsm; sym_kBegin; sym_kCase; sym_kClass;
   sym_kConst; sym_kConstructor; sym_kDestructor; sym_kExports; sym_kFor; sym_kFunction;
   sym_kGoto; sym_kIf; sym_kInherited]; ACTIONS 1016 [sym_kInline]; ACTIONS 5466 [sym_kLabel;
   sym_kNil; sym_kNot; sym_kProcedure; sym_kProperty; sym_kRaise; sym_kRepeat;
   sym_kResourcestring; sym_kString; sym_kThreadvar; sym_kTry; sym_kType; sym_kUses; sym_kVar;
   sym_kWhile; sym_kWith]].

(** State 758. *)
Definition ts_parse_table_758 : parse_row :=
  [STATE 5604 [sym_if]; STATE 5633 [sym_ifElse; sym_while; sym_repeat; sym_for; sym_foreach;
   sym_try; sym_case; sym_block; sym_asm; sym_with; sym_raise; sym_statement; sym_goto;
   sym__statement]; STATE 11664 [sym_ifTr; sym_ifElseTr; sym_whileTr; sym_repeatTr; sym_forTr;
   sym_foreachTr; sym_tryTr; sym_caseTr]; STATE 11564 [sym_blockTr]; STATE 11664 [sym_asmTr;
   sym_withTr; sym_raiseTr; sym_statementTr; sym_gotoTr; sym__statementTr];
   STATE 11516 [sym_assignment]; STATE 11931 [sym_varAssignDef]; STATE 11516 [sym_varDef;
   sym_constDef]; STATE 785 [sym_label]; STATE 7221 [sym__expr; sym_exprConditional];
   STATE 6884 [sym__ref; sym_lambda; sym_inherited; sym_exprDot; sym_exprDeref; sym_exprAs;
   sym_exprTpl; sym_exprSubscript; sym_exprCall]; STATE 7221 [sym_exprBinary; sym_exprUnary];
   STATE 6884 [sym_exprParens; sym_exprBrackets; sym__literal; sym_literalString];
   STATE 5959 [sym__literalString; sym_literalChar]; STATE 6884 [sym_literalNumber];
   STATE 6992 [sym__literalInt; sym__literalFloat]; STATE 785 [aux_sym_labeledStatement_repeat1];
   STATE 5959 [aux_sym_literalString_repeat1]; ACTIONS 5497 [anon_sym_SEMI];
   ACTIONS 3196 [anon_sym_LBRACK]; ACTIONS 3198 [anon_sym_LPAREN];
   ACTIONS 3200 [aux_sym__literalString_token1]; ACTIONS 3202 [anon_sym_POUND];
   ACTIONS 3204 [aux_sym__literalInt_token1]; ACTIONS 3206 [aux_sym__literalInt_token2;
   aux_sym__literalInt_token3]; ACTIONS 3204 [aux_sym__literalFloat_token1];
   ACTIONS 3208 [sym_kAdd; sym_kSub]; ACTIONS 3210 [sym_kAt]; ACTIONS 3212 [sym_kTrue;
   sym_kFalse]; ACTIONS 3214 [sym_labelNumber]; ACTIONS 3 [sym__space];
   ACTIONS 5 [sym_ppDirective]; ACTIONS 3 [sym_comment]; ACTIONS 3212 [sym_ppFragmentExpr];
   ACTIONS 3200 [sym__literalStringMultiline]; ACTIONS 3216 [sym_identifier];
   ACTIONS 3218 [sym_kSpecialize]; ACTIONS 3308 [sym_kAsm]; ACTIONS 3310 [sym_kBegin];
   ACTIONS 3312 [sym_kCase]; ACTIONS 3226 [sym_kConst]; ACTIONS 4301 [sym_kElse; sym_kEnd;
   sym_kFinalization]; ACTIONS 3314 [sym_kFor]; ACTIONS 3234 [sym_kFunction];
   ACTIONS 3316 [sym_kGoto]; ACTIONS 3318 [sym_kIf]; ACTIONS 4301 [sym_kImplementation];
   ACTIONS 3240 [sym_kInherited]; ACTIONS 4301 [sym_kInitialization; sym_kInterface];
   ACTIONS 3212 [sym_kNil]; ACTIONS 3210 [sym_kNot]; ACTIONS 3234 [sym_kProcedure];
   ACTIONS 3320 [sym_kRaise]; ACTIONS 3322 [sym_kRepeat]; ACTIONS 3246 [sym_kString];
   ACTIONS 3324 [sym_kTry]; ACTIONS 3250 [sym_kVar]; ACTIONS 3326 [sym_kWhile];
   ACTIONS 3328 [sym_kWith]].

(** State 759. *)
Definition ts_parse_table_759 : parse_row :=
  [STATE 2921 [sym__ppIf]; STATE 1214 [sym__procAttributeNoExt];
   STATE 1215 [sym__procAttributesPp]; STATE 15691 [sym_procAttribute];
   STATE 777 [aux_sym__declProc_repeat1]; ACTIONS 985 [anon_sym_SEMI; anon_sym_COMMA];
   ACTIONS 5499 [anon_sym_LBRACK]; ACTIONS 990 [anon_sym_LPAREN];
   ACTIONS 985 [aux_sym__literalString_token1; anon_sym_POUND];
   ACTIONS 990 [aux_sym__literalInt_token1]; ACTIONS 985 [aux_sym__literalInt_token2;
   aux_sym__literalInt_token3]; ACTIONS 990 [aux_sym__literalFloat_token1];
   ACTIONS 992 [aux_sym_ppUsesBlock_token1]; ACTIONS 985 [aux_sym_ppUsesBlock_token2;
   aux_sym_ppUsesBlock_token3]; ACTIONS 990 [sym_kAdd; sym_kSub]; ACTIONS 985 [sym_kAt;
   sym_kTrue; sym_kFalse]; ACTIONS 3 [sym__space]; ACTIONS 5 [sym_ppDirective];
   ACTIONS 3 [sym_comment]; ACTIONS 985 [sym_ppFragmentExpr; sym__literalStringMultiline;
   sym_identifier]; ACTIONS 995 [sym_kDefault; sym_kNodefault]; ACTIONS 998 [sym_kDispId];
   ACTIONS 985 [sym_kGeneric; sym_kSpecialize; sym_kOperator]; ACTIONS 1001 [sym_kPublic];
   ACTIONS 995 [sym_kStatic; sym_kVirtual; sym_kAbstract; sym_kDynamic; sym_kOverride;
   sym_kOverload; sym_kReintroduce; sym_kStdcall; sym_kCdecl; sym_kCppdecl; sym_kPascal;
   sym_kRegister; sym_kMwpascal]; ACTIONS 1004 [sym_kMessage]; ACTIONS 1007 [sym_kDeprecated];
   ACTIONS 995 [sym_kExperimental; sym_kPlatform; sym_kUnimplemented; sym_kCvar];
   ACTIONS 1010 [sym_kExport]; ACTIONS 995 [sym_kFar; sym_kNear; sym_kSafecall; sym_kAssembler;
   sym_kNostackframe; sym_kInterrupt; sym_kNoreturn; sym_kIocheck; sym_kLocal; sym_kHardfloat;
   sym_kSoftfloat; sym_kMs_abi_default; sym_kMs_abi_cdecl; sym_kSaveregisters;
   sym_kSysv_abi_default; sym_kSysv_abi_cdecl; sym_kVectorcall; sym_kVarargs; sym_kWinapi];
   ACTIONS 1013 [sym_kAlias]; ACTIONS 985 [sym_kAsm; sym_kBegin; sym_kCase; sym_kClass;
   sym_kConst; sym_kConstructor; sym_kDestructor; sym_kExports; sym_kFor; sym_kFunction;
   sym_kGoto; sym_kIf; sym_kInherited]; ACTIONS 1016 [sym_kInline]; ACTIONS 985 [sym_kLabel;
   sym_kNil; sym_kNot; sym_kProcedure; sym_kProperty; sym_kRaise; sym_kRepeat;
   sym_kResourcestring; sym_kString; sym_kThreadvar; sym_kTry; sym_kType; sym_kUses; sym_kVar;
   sym_kWhile; sym_kWith]].

(** State 760. *)
Definition ts_parse_table_760 : parse_row :=
  [STATE 2921 [sym__ppIf]; STATE 1214 [sym__procAttributeNoExt];
   STATE 1215 [sym__procAttributesPp]; STATE 15691 [sym_procAttribute];
   STATE 783 [aux_sym__declProc_repeat1]; ACTIONS 5502 [anon_sym_SEMI; anon_sym_COMMA];
   ACTIONS 5504 [anon_sym_LBRACK]; ACTIONS 5507 [anon_sym_LPAREN];
   ACTIONS 5502 [aux_sym__literalString_token1; anon_sym_POUND];
   ACTIONS 5507 [aux_sym__literalInt_token1]; ACTIONS 5502 [aux_sym__literalInt_token2;
   aux_sym__literalInt_token3]; ACTIONS 5507 [aux_sym__literalFloat_token1];
   ACTIONS 5509 [aux_sym_ppUsesBlock_token1]; ACTIONS 5502 [aux_sym_ppUsesBlock_token2;
   aux_sym_ppUsesBlock_token3]; ACTIONS 5507 [sym_kAdd; sym_kSub]; ACTIONS 5502 [sym_kAt;
   sym_kTrue; sym_kFalse]; ACTIONS 3 [sym__space]; ACTIONS 5 [sym_ppDirective];
   ACTIONS 3 [sym_comment]; ACTIONS 5502 [sym_ppFragmentExpr; sym__literalStringMultiline;
   sym_identifier]; ACTIONS 5512 [sym_kDefault; sym_kNodefault]; ACTIONS 5515 [sym_kDispId];
   ACTIONS 5502 [sym_kGeneric; sym_kSpecialize; sym_kOperator]; ACTIONS 5518 [sym_kPublic];
   ACTIONS 5512 [sym_kStatic; sym_kVirtual; sym_kAbstract; sym_kDynamic; sym_kOverride;
   sym_kOverload; sym_kReintroduce; sym_kStdcall; sym_kCdecl; sym_kCppdecl; sym_kPascal;
   sym_kRegister; sym_kMwpascal]; ACTIONS 5521 [sym_kMessage]; ACTIONS 5524 [sym_kDeprecated];
   ACTIONS 5512 [sym_kExperimental; sym_kPlatform; sym_kUnimplemented; sym_kCvar];
   ACTIONS 5527 [sym_kExport]; ACTIONS 5512 [sym_kFar; sym_kNear; sym_kSafecall; sym_kAssembler;
   sym_kNostackframe; sym_kInterrupt; sym_kNoreturn; sym_kIocheck; sym_kLocal; sym_kHardfloat;
   sym_kSoftfloat; sym_kMs_abi_default; sym_kMs_abi_cdecl; sym_kSaveregisters;
   sym_kSysv_abi_default; sym_kSysv_abi_cdecl; sym_kVectorcall; sym_kVarargs; sym_kWinapi];
   ACTIONS 5530 [sym_kAlias]; ACTIONS 5502 [sym_kAsm; sym_kBegin; sym_kCase; sym_kClass;
   sym_kConst; sym_kConstructor; sym_kDestructor; sym_kExports; sym_kFor; sym_kFunction;
   sym_kGoto; sym_kIf; sym_kInherited]; ACTIONS 1016 [sym_kInline]; ACTIONS 5502 [sym_kLabel;
   sym_kNil; sym_kNot; sym_kProcedure; sym_kProperty; sym_kRaise; sym_kRepeat;
   sym_kResourcestring; sym_kString; sym_kThreadvar; sym_kTry; sym_kType; sym_kUses; sym_kVar;
   sym_kWhile; sym_kWith]].

(** State 761. *)
Definition ts_parse_table_761 : parse_row :=
  [STATE 2921 [sym__ppIf]; STATE 1214 [sym__procAttributeNoExt];
   STATE 1215 [sym__procAttributesPp]; STATE 15691 [sym_procAttribute];
   STATE 777 [aux_sym__declProc_repeat1]; ACTIONS 5533 [anon_sym_SEMI; anon_sym_COMMA];
   ACTIONS 5535 [anon_sym_LBRACK]; ACTIONS 5538 [anon_sym_LPAREN];
   ACTIONS 5533 [aux_sym__literalString_token1; anon_sym_POUND];
   ACTIONS 5538 [aux_sym__literalInt_token1]; ACTIONS 5533 [aux_sym__literalInt_token2;
   aux_sym__literalInt_token3]; ACTIONS 5538 [aux_sym__literalFloat_token1];
   ACTIONS 5540 [aux_sym_ppUsesBlock_token1]; ACTIONS 5533 [aux_sym_ppUsesBlock_token2;
   aux_sym_ppUsesBlock_token3]; ACTIONS 5538 [sym_kAdd; sym_kSub]; ACTIONS 5533 [sym_kAt;
   sym_kTrue; sym_kFalse]; ACTIONS 3 [sym__space]; ACTIONS 5 [sym_ppDirective];
   ACTIONS 3 [sym_comment]; ACTIONS 5533 [sym_ppFragmentExpr; sym__literalStringMultiline;
   sym_identifier]; ACTIONS 5543 [sym_kDefault; sym_kNodefault]; ACTIONS 5546 [sym_kDispId];
   ACTIONS 5533 [sym_kGeneric; sym_kSpecialize; sym_kOperator]; ACTIONS 5549 [sym_kPublic];
   ACTIONS 5543 [sym_kStatic; sym_kVirtual; sym_kAbstract; sym_kDynamic; sym_kOverride;
   sym_kOverload; sym_kReintroduce; sym_kStdcall; sym_kCdecl; sym_kCppdecl; sym_kPascal;
   sym_kRegister; sym_kMwpascal]; ACTIONS 5552 [sym_kMessage]; ACTIONS 5555 [sym_kDeprecated];
   ACTIONS 5543 [sym_kExperimental; sym_kPlatform; sym_kUnimplemented; sym_kCvar];
   ACTIONS 5558 [sym_kExport]; ACTIONS 5543 [sym_kFar; sym_kNear; sym_kSafecall; sym_kAssembler;
   sym_kNostackframe; sym_kInterrupt; sym_kNoreturn; sym_kIocheck; sym_kLocal; sym_kHardfloat;
   sym_kSoftfloat; sym_kMs_abi_default; sym_kMs_abi_cdecl; sym_kSaveregisters;
   sym_kSysv_abi_default; sym_kSysv_abi_cdecl; sym_kVectorcall; sym_kVarargs; sym_kWinapi];
   ACTIONS 5561 [sym_kAlias]; ACTIONS 5533 [sym_kAsm; sym_kBegin; sym_kCase; sym_kClass;
   sym_kConst; sym_kConstructor; sym_kDestructor; sym_kExports; sym_kFor; sym_kFunction;
   sym_kGoto; sym_kIf; sym_kInherited]; ACTIONS 1016 [sym_kInline]; ACTIONS 5533 [sym_kLabel;
   sym_kNil; sym_kNot; sym_kProcedure; sym_kProperty; sym_kRaise; sym_kRepeat;
   sym_kResourcestring; sym_kString; sym_kThreadvar; sym_kTry; sym_kType; sym_kUses; sym_kVar;
   sym_kWhile; sym_kWith]].

(** State 762. *)
Definition ts_parse_table_762 : parse_row :=
  [STATE 2921 [sym__ppIf]; STATE 1214 [sym__procAttributeNoExt];
   STATE 1215 [sym__procAttributesPp]; STATE 15691 [sym_procAttribute];
   STATE 777 [aux_sym__declProc_repeat1]; ACTIONS 1018 [anon_sym_SEMI; anon_sym_COMMA];
   ACTIONS 5564 [anon_sym_LBRACK]; ACTIONS 1023 [anon_sym_LPAREN];
   ACTIONS 1018 [aux_sym__literalString_token1; anon_sym_POUND];
   ACTIONS 1023 [aux_sym__literalInt_token1]; ACTIONS 1018 [aux_sym__literalInt_token2;
   aux_sym__literalInt_token3]; ACTIONS 1023 [aux_sym__literalFloat_token1];
   ACTIONS 1025 [aux_sym_ppUsesBlock_token1]; ACTIONS 1018 [aux_sym_ppUsesBlock_token2;
   aux_sym_ppUsesBlock_token3]; ACTIONS 1023 [sym_kAdd; sym_kSub]; ACTIONS 1018 [sym_kAt;
   sym_kTrue; sym_kFalse]; ACTIONS 3 [sym__space]; ACTIONS 5 [sym_ppDirective];
   ACTIONS 3 [sym_comment]; ACTIONS 1018 [sym_ppFragmentExpr; sym__literalStringMultiline;
   sym_identifier]; ACTIONS 1028 [sym_kDefault; sym_kNodefault]; ACTIONS 1031 [sym_kDispId];
   ACTIONS 1018 [sym_kGeneric; sym_kSpecialize; sym_kOperator]; ACTIONS 1034 [sym_kPublic];
   ACTIONS 1028 [sym_kStatic; sym_kVirtual; sym_kAbstract; sym_kDynamic; sym_kOverride;
   sym_kOverload; sym_kReintroduce; sym_kStdcall; sym_kCdecl; sym_kCppdecl; sym_kPascal;
   sym_kRegister; sym_kMwpascal]; ACTIONS 1037 [sym_kMessage]; ACTIONS 1040 [sym_kDeprecated];
   ACTIONS 1028 [sym_kExperimental; sym_kPlatform; sym_kUnimplemented; sym_kCvar];
   ACTIONS 1043 [sym_kExport]; ACTIONS 1028 [sym_kFar; sym_kNear; sym_kSafecall; sym_kAssembler;
   sym_kNostackframe; sym_kInterrupt; sym_kNoreturn; sym_kIocheck; sym_kLocal; sym_kHardfloat;
   sym_kSoftfloat; sym_kMs_abi_default; sym_kMs_abi_cdecl; sym_kSaveregisters;
   sym_kSysv_abi_default; sym_kSysv_abi_cdecl; sym_kVectorcall; sym_kVarargs; sym_kWinapi];
   ACTIONS 1046 [sym_kAlias]; ACTIONS 1018 [sym_kAsm; sym_kBegin; sym_kCase; sym_kClass;
   sym_kConst; sym_kConstructor; sym_kDestructor; sym_kExports; sym_kFor; sym_kFunction;
   sym_kGoto; sym_kIf; sym_kInherited]; ACTIONS 1016 [sym_kInline]; ACTIONS 1018 [sym_kLabel;
   sym_kNil; sym_kNot; sym_kProcedure; sym_kProperty; sym_kRaise; sym_kRepeat;
   sym_kResourcestring; sym_kString; sym_kThreadvar; sym_kTry; sym_kType; sym_kUses; sym_kVar;
   sym_kWhile; sym_kWith]].

(** State 763. *)
Definition ts_parse_table_763 : parse_row :=
  [STATE 2921 [sym__ppIf]; STATE 1214 [sym__procAttributeNoExt];
   STATE 1215 [sym__procAttributesPp]; STATE 15691 [sym_procAttribute];
   STATE 807 [aux_sym__declProc_repeat1]; ACTIONS 5567 [anon_sym_SEMI; anon_sym_COMMA];
   ACTIONS 5569 [anon_sym_LBRACK]; ACTIONS 5572 [anon_sym_LPAREN];
   ACTIONS 5567 [aux_sym__literalString_token1; anon_sym_POUND];
   ACTIONS 5572 [aux_sym__literalInt_token1]; ACTIONS 5567 [aux_sym__literalInt_token2;
   aux_sym__literalInt_token3]; ACTIONS 5572 [aux_sym__literalFloat_token1];
   ACTIONS 5574 [aux_sym_ppUsesBlock_token1]; ACTIONS 5567 [aux_sym_ppUsesBlock_token2;
   aux_sym_ppUsesBlock_token3]; ACTIONS 5572 [sym_kAdd; sym_kSub]; ACTIONS 5567 [sym_kAt;
   sym_kTrue; sym_kFalse]; ACTIONS 3 [sym__space]; ACTIONS 5 [sym_ppDirective];
   ACTIONS 3 [sym_comment]; ACTIONS 5567 [sym_ppFragmentExpr; sym__literalStringMultiline;
   sym_identifier]; ACTIONS 5577 [sym_kDefault; sym_kNodefault]; ACTIONS 5580 [sym_kDispId];
   ACTIONS 5567 [sym_kGeneric; sym_kSpecialize; sym_kOperator]; ACTIONS 5583 [sym_kPublic];
   ACTIONS 5577 [sym_kStatic; sym_kVirtual; sym_kAbstract; sym_kDynamic; sym_kOverride;
   sym_kOverload; sym_kReintroduce; sym_kStdcall; sym_kCdecl; sym_kCppdecl; sym_kPascal;
   sym_kRegister; sym_kMwpascal]; ACTIONS 5586 [sym_kMessage]; ACTIONS 5589 [sym_kDeprecated];
   ACTIONS 5577 [sym_kExperimental; sym_kPlatform; sym_kUnimplemented; sym_kCvar];
   ACTIONS 5592 [sym_kExport]; ACTIONS 5577 [sym_kFar; sym_kNear; sym_kSafecall; sym_kAssembler;
   sym_kNostackframe; sym_kInterrupt; sym_kNoreturn; sym_kIocheck; sym_kLocal; sym_kHardfloat;
   sym_kSoftfloat; sym_kMs_abi_default; sym_kMs_abi_cdecl; sym_kSaveregisters;
   sym_kSysv_abi_default; sym_kSysv_abi_cdecl; sym_kVectorcall; sym_kVarargs; sym_kWinapi];
   ACTIONS 5595 [sym_kAlias]; ACTIONS 5567 [sym_kAsm; sym_kBegin; sym_kCase; sym_kClass;
   sym_kConst; sym_kConstructor; sym_kDestructor; sym_kExports; sym_kFor; sym_kFunction;
   sym_kGoto; sym_kIf; sym_kInherited]; ACTIONS 1016 [sym_kInline]; ACTIONS 5567 [sym_kLabel;
   sym_kNil; sym_kNot; sym_kProcedure; sym_kProperty; sym_kRaise; sym_kRepeat;
   sym_kResourcestring; sym_kString; sym_kThreadvar; sym_kTry; sym_kType; sym_kUses; sym_kVar;
   sym_kWhile; sym_kWith]].

(** State 764. *)
Definition ts_parse_table_764 : parse_row :=
  [STATE 1204 [sym__procAttribute]; STATE 15235 [sym_procAttribute]; STATE 747 [sym_procExternal;
   aux_sym_declVar_repeat2]; ACTIONS 5598 [anon_sym_SEMI; anon_sym_COMMA];
   ACTIONS 5600 [anon_sym_LBRACK]; ACTIONS 5603 [anon_sym_LPAREN];
   ACTIONS 5598 [aux_sym__literalString_token1; anon_sym_POUND];
   ACTIONS 5603 [aux_sym__literalInt_token1]; ACTIONS 5598 [aux_sym__literalInt_token2;
   aux_sym__literalInt_token3]; ACTIONS 5603 [aux_sym__literalFloat_token1];
   ACTIONS 5598 [aux_sym_ppUsesBlock_token1; aux_sym_ppUsesBlock_token2;
   aux_sym_ppUsesBlock_token3]; ACTIONS 5603 [sym_kAdd; sym_kSub]; ACTIONS 5598 [sym_kAt;
   sym_kTrue; sym_kFalse]; ACTIONS 3 [sym__space]; ACTIONS 5 [sym_ppDirective];
   ACTIONS 3 [sym_comment]; ACTIONS 5598 [sym_ppFragmentExpr; sym__literalStringMultiline;
   sym_identifier]; ACTIONS 5605 [sym_kDefault; sym_kNodefault]; ACTIONS 5608 [sym_kDispId];
   ACTIONS 5598 [sym_kGeneric; sym_kSpecialize; sym_kOperator]; ACTIONS 5611 [sym_kPublic];
   ACTIONS 5605 [sym_kStatic; sym_kVirtual; sym_kAbstract; sym_kDynamic; sym_kOverride;
   sym_kOverload; sym_kReintroduce; sym_kStdcall; sym_kCdecl; sym_kCppdecl; sym_kPascal;
   sym_kRegister; sym_kMwpascal]; ACTIONS 3438 [sym_kExternal]; ACTIONS 5614 [sym_kMessage];
   ACTIONS 5617 [sym_kDeprecated]; ACTIONS 5605 [sym_kExperimental; sym_kPlatform;
   sym_kUnimplemented; sym_kCvar]; ACTIONS 5620 [sym_kExport]; ACTIONS 5605 [sym_kFar; sym_kNear;
   sym_kSafecall; sym_kAssembler; sym_kNostackframe; sym_kInterrupt; sym_kNoreturn; sym_kIocheck;
   sym_kLocal; sym_kHardfloat; sym_kSoftfloat; sym_kMs_abi_default; sym_kMs_abi_cdecl;
   sym_kSaveregisters; sym_kSysv_abi_default; sym_kSysv_abi_cdecl; sym_kVectorcall; sym_kVarargs;
   sym_kWinapi]; ACTIONS 5623 [sym_kAlias]; ACTIONS 5598 [sym_kAsm; sym_kBegin; sym_kCase;
   sym_kClass; sym_kConst; sym_kConstructor; sym_kDestructor; sym_kExports; sym_kFor;
   sym_kFunction; sym_kGoto; sym_kIf; sym_kInherited]; ACTIONS 1016 [sym_kInline];
   ACTIONS 5598 [sym_kLabel; sym_kNil; sym_kNot; sym_kProcedure; sym_kProperty; sym_kRaise;
   sym_kRepeat; sym_kResourcestring; sym_kString; sym_kThreadvar; sym_kTry; sym_kType; sym_kUses;
   sym_kVar; sym_kWhile; sym_kWith]].

(** State 765. *)
Definition ts_parse_table_765 : parse_row :=
  [STATE 2921 [sym__ppIf]; STATE 1214 [sym__procAttributeNoExt];
   STATE 1215 [sym__procAttributesPp]; STATE 15691 [sym_procAttribute];
   STATE 820 [aux_sym__declProc_repeat1]; ACTIONS 5626 [anon_sym_SEMI; anon_sym_COMMA];
   ACTIONS 5628 [anon_sym_LBRACK]; ACTIONS 5631 [anon_sym_LPAREN];
   ACTIONS 5626 [aux_sym__literalString_token1; anon_sym_POUND];
   ACTIONS 5631 [aux_sym__literalInt_token1]; ACTIONS 5626 [aux_sym__literalInt_token2;
   aux_sym__literalInt_token3]; ACTIONS 5631 [aux_sym__literalFloat_token1];
   ACTIONS 5633 [aux_sym_ppUsesBlock_token1]; ACTIONS 5626 [aux_sym_ppUsesBlock_token2;
   aux_sym_ppUsesBlock_token3]; ACTIONS 5631 [sym_kAdd; sym_kSub]; ACTIONS 5626 [sym_kAt;
   sym_kTrue; sym_kFalse]; ACTIONS 3 [sym__space]; ACTIONS 5 [sym_ppDirective];
   ACTIONS 3 [sym_comment]; ACTIONS 5626 [sym_ppFragmentExpr; sym__literalStringMultiline;
   sym_identifier]; ACTIONS 5636 [sym_kDefault; sym_kNodefault]; ACTIONS 5639 [sym_kDispId];
   ACTIONS 5626 [sym_kGeneric; sym_kSpecialize; sym_kOperator]; ACTIONS 5642 [sym_kPublic];
   ACTIONS 5636 [sym_kStatic; sym_kVirtual; sym_kAbstract; sym_kDynamic; sym_kOverride;
   sym_kOverload; sym_kReintroduce; sym_kStdcall; sym_kCdecl; sym_kCppdecl; sym_kPascal;
   sym_kRegister; sym_kMwpascal]; ACTIONS 5645 [sym_kMessage]; ACTIONS 5648 [sym_kDeprecated];
   ACTIONS 5636 [sym_kExperimental; sym_kPlatform; sym_kUnimplemented; sym_kCvar];
   ACTIONS 5651 [sym_kExport]; ACTIONS 5636 [sym_kFar; sym_kNear; sym_kSafecall; sym_kAssembler;
   sym_kNostackframe; sym_kInterrupt; sym_kNoreturn; sym_kIocheck; sym_kLocal; sym_kHardfloat;
   sym_kSoftfloat; sym_kMs_abi_default; sym_kMs_abi_cdecl; sym_kSaveregisters;
   sym_kSysv_abi_default; sym_kSysv_abi_cdecl; sym_kVectorcall; sym_kVarargs; sym_kWinapi];
   ACTIONS 5654 [sym_kAlias]; ACTIONS 5626 [sym_kAsm; sym_kBegin; sym_kCase; sym_kClass;
   sym_kConst; sym_kConstructor; sym_kDestructor; sym_kExports; sym_kFor; sym_kFunction;
   sym_kGoto; sym_kIf; sym_kInherited]; ACTIONS 1016 [sym_kInline]; ACTIONS 5626 [sym_kLabel;
   sym_kNil; sym_kNot; sym_kProcedure; sym_kProperty; sym_kRaise; sym_kRepeat;
   sym_kResourcestring; sym_kString; sym_kThreadvar; sym_kTry; sym_kType; sym_kUses; sym_kVar;
   sym_kWhile; sym_kWith]].

(** State 766. *)
Definition ts_parse_table_766 : parse_row :=
  [STATE 2921 [sym__ppIf]; STATE 1214 [sym__procAttributeNoExt];
   STATE 1215 [sym__procAttributesPp]; STATE 15691 [sym_procAttribute];
   STATE 679 [aux_sym__declProc_repeat1]; ACTIONS 5657 [anon_sym_SEMI; anon_sym_COMMA];
   ACTIONS 5659 [anon_sym_LBRACK]; ACTIONS 5662 [anon_sym_LPAREN];
   ACTIONS 5657 [aux_sym__literalString_token1; anon_sym_POUND];
   ACTIONS 5662 [aux_sym__literalInt_token1]; ACTIONS 5657 [aux_sym__literalInt_token2;
   aux_sym__literalInt_token3]; ACTIONS 5662 [aux_sym__literalFloat_token1];
   ACTIONS 5664 [aux_sym_ppUsesBlock_token1]; ACTIONS 5657 [aux_sym_ppUsesBlock_token2;
   aux_sym_ppUsesBlock_token3]; ACTIONS 5662 [sym_kAdd; sym_kSub]; ACTIONS 5657 [sym_kAt;
   sym_kTrue; sym_kFalse]; ACTIONS 3 [sym__space]; ACTIONS 5 [sym_ppDirective];
   ACTIONS 3 [sym_comment]; ACTIONS 5657 [sym_ppFragmentExpr; sym__literalStringMultiline;
   sym_identifier]; ACTIONS 5667 [sym_kDefault; sym_kNodefault]; ACTIONS 5670 [sym_kDispId];
   ACTIONS 5657 [sym_kGeneric; sym_kSpecialize; sym_kOperator]; ACTIONS 5673 [sym_kPublic];
   ACTIONS 5667 [sym_kStatic; sym_kVirtual; sym_kAbstract; sym_kDynamic; sym_kOverride;
   sym_kOverload; sym_kReintroduce; sym_kStdcall; sym_kCdecl; sym_kCppdecl; sym_kPascal;
   sym_kRegister; sym_kMwpascal]; ACTIONS 5676 [sym_kMessage]; ACTIONS 5679 [sym_kDeprecated];
   ACTIONS 5667 [sym_kExperimental; sym_kPlatform; sym_kUnimplemented; sym_kCvar];
   ACTIONS 5682 [sym_kExport]; ACTIONS 5667 [sym_kFar; sym_kNear; sym_kSafecall; sym_kAssembler;
   sym_kNostackframe; sym_kInterrupt; sym_kNoreturn; sym_kIocheck; sym_kLocal; sym_kHardfloat;
   sym_kSoftfloat; sym_kMs_abi_default; sym_kMs_abi_cdecl; sym_kSaveregisters;
   sym_kSysv_abi_default; sym_kSysv_abi_cdecl; sym_kVectorcall; sym_kVarargs; sym_kWinapi];
   ACTIONS 5685 [sym_kAlias]; ACTIONS 5657 [sym_kAsm; sym_kBegin; sym_kCase; sym_kClass;
   sym_kConst; sym_kConstructor; sym_kDestructor; sym_kExports; sym_kFor; sym_kFunction;
   sym_kGoto; sym_kIf; sym_kInherited]; ACTIONS 1016 [sym_kInline]; ACTIONS 5657 [sym_kLabel;
   sym_kNil; sym_kNot; sym_kProcedure; sym_kProperty; sym_kRaise; sym_kRepeat;
   sym_kResourcestring; sym_kString; sym_kThreadvar; sym_kTry; sym_kType; sym_kUses; sym_kVar;
   sym_kWhile; sym_kWith]].

(** State 767. *)
Definition ts_parse_table_767 : parse_row :=
  [STATE 2921 [sym__ppIf]; STATE 1214 [sym__procAttributeNoExt];
   STATE 1215 [sym__procAttributesPp]; STATE 15691 [sym_procAttribute];
   STATE 750 [aux_sym__declProc_repeat1]; ACTIONS 2685 [anon_sym_SEMI; anon_sym_COMMA];
   ACTIONS 5688 [anon_sym_LBRACK]; ACTIONS 2690 [anon_sym_LPAREN];
   ACTIONS 2685 [aux_sym__literalString_token1; anon_sym_POUND];
   ACTIONS 2690 [aux_sym__literalInt_token1]; ACTIONS 2685 [aux_sym__literalInt_token2;
   aux_sym__literalInt_token3]; ACTIONS 2690 [aux_sym__literalFloat_token1];
   ACTIONS 2692 [aux_sym_ppUsesBlock_token1]; ACTIONS 2685 [aux_sym_ppUsesBlock_token2;
   aux_sym_ppUsesBlock_token3]; ACTIONS 2690 [sym_kAdd; sym_kSub]; ACTIONS 2685 [sym_kAt;
   sym_kTrue; sym_kFalse]; ACTIONS 3 [sym__space]; ACTIONS 5 [sym_ppDirective];
   ACTIONS 3 [sym_comment]; ACTIONS 2685 [sym_ppFragmentExpr; sym__literalStringMultiline;
   sym_identifier]; ACTIONS 2695 [sym_kDefault; sym_kNodefault]; ACTIONS 2698 [sym_kDispId];
   ACTIONS 2685 [sym_kGeneric; sym_kSpecialize; sym_kOperator]; ACTIONS 2701 [sym_kPublic];
   ACTIONS 2695 [sym_kStatic; sym_kVirtual; sym_kAbstract; sym_kDynamic; sym_kOverride;
   sym_kOverload; sym_kReintroduce; sym_kStdcall; sym_kCdecl; sym_kCppdecl; sym_kPascal;
   sym_kRegister; sym_kMwpascal]; ACTIONS 2704 [sym_kMessage]; ACTIONS 2707 [sym_kDeprecated];
   ACTIONS 2695 [sym_kExperimental; sym_kPlatform; sym_kUnimplemented; sym_kCvar];
   ACTIONS 2710 [sym_kExport]; ACTIONS 2695 [sym_kFar; sym_kNear; sym_kSafecall; sym_kAssembler;
   sym_kNostackframe; sym_kInterrupt; sym_kNoreturn; sym_kIocheck; sym_kLocal; sym_kHardfloat;
   sym_kSoftfloat; sym_kMs_abi_default; sym_kMs_abi_cdecl; sym_kSaveregisters;
   sym_kSysv_abi_default; sym_kSysv_abi_cdecl; sym_kVectorcall; sym_kVarargs; sym_kWinapi];
   ACTIONS 2713 [sym_kAlias]; ACTIONS 2685 [sym_kAsm; sym_kBegin; sym_kCase; sym_kClass;
   sym_kConst; sym_kConstructor; sym_kDestructor; sym_kExports; sym_kFor; sym_kFunction;
   sym_kGoto; sym_kIf; sym_kInherited]; ACTIONS 1016 [sym_kInline]; ACTIONS 2685 [sym_kLabel;
   sym_kNil; sym_kNot; sym_kProcedure; sym_kProperty; sym_kRaise; sym_kRepeat;
   sym_kResourcestring; sym_kString; sym_kThreadvar; sym_kTry; sym_kType; sym_kUses; sym_kVar;
   sym_kWhile; sym_kWith]].

(** State 768. *)
Definition ts_parse_table_768 : parse_row :=
  [STATE 2921 [sym__ppIf]; STATE 1214 [sym__procAttributeNoExt];
   STATE 1215 [sym__procAttributesPp]; STATE 15691 [sym_procAttribute];
   STATE 777 [aux_sym__declProc_repeat1]; ACTIONS 5691 [anon_sym_SEMI; anon_sym_COMMA];
   ACTIONS 5693 [anon_sym_LBRACK]; ACTIONS 5696 [anon_sym_LPAREN];
   ACTIONS 5691 [aux_sym__literalString_token1; anon_sym_POUND];
   ACTIONS 5696 [aux_sym__literalInt_token1]; ACTIONS 5691 [aux_sym__literalInt_token2;
   aux_sym__literalInt_token3]; ACTIONS 5696 [aux_sym__literalFloat_token1];
   ACTIONS 5698 [aux_sym_ppUsesBlock_token1]; ACTIONS 5691 [aux_sym_ppUsesBlock_token2;
   aux_sym_ppUsesBlock_token3]; ACTIONS 5696 [sym_kAdd; sym_kSub]; ACTIONS 5691 [sym_kAt;
   sym_kTrue; sym_kFalse]; ACTIONS 3 [sym__space]; ACTIONS 5 [sym_ppDirective];
   ACTIONS 3 [sym_comment]; ACTIONS 5691 [sym_ppFragmentExpr; sym__literalStringMultiline;
   sym_identifier]; ACTIONS 5701 [sym_kDefault; sym_kNodefault]; ACTIONS 5704 [sym_kDispId];
   ACTIONS 5691 [sym_kGeneric; sym_kSpecialize; sym_kOperator]; ACTIONS 5707 [sym_kPublic];
   ACTIONS 5701 [sym_kStatic; sym_kVirtual; sym_kAbstract; sym_kDynamic; sym_kOverride;
   sym_kOverload; sym_kReintroduce; sym_kStdcall; sym_kCdecl; sym_kCppdecl; sym_kPascal;
   sym_kRegister; sym_kMwpascal]; ACTIONS 5710 [sym_kMessage]; ACTIONS 5713 [sym_kDeprecated];
   ACTIONS 5701 [sym_kExperimental; sym_kPlatform; sym_kUnimplemented; sym_kCvar];
   ACTIONS 5716 [sym_kExport]; ACTIONS 5701 [sym_kFar; sym_kNear; sym_kSafecall; sym_kAssembler;
   sym_kNostackframe; sym_kInterrupt; sym_kNoreturn; sym_kIocheck; sym_kLocal; sym_kHardfloat;
   sym_kSoftfloat; sym_kMs_abi_default; sym_kMs_abi_cdecl; sym_kSaveregisters;
   sym_kSysv_abi_default; sym_kSysv_abi_cdecl; sym_kVectorcall; sym_kVarargs; sym_kWinapi];
   ACTIONS 5719 [sym_kAlias]; ACTIONS 5691 [sym_kAsm; sym_kBegin; sym_kCase; sym_kClass;
   sym_kConst; sym_kConstructor; sym_kDestructor; sym_kExports; sym_kFor; sym_kFunction;
   sym_kGoto; sym_kIf; sym_kInherited]; ACTIONS 1016 [sym_kInline]; ACTIONS 5691 [sym_kLabel;
   sym_kNil; sym_kNot; sym_kProcedure; sym_kProperty; sym_kRaise; sym_kRepeat;
   sym_kResourcestring; sym_kString; sym_kThreadvar; sym_kTry; sym_kType; sym_kUses; sym_kVar;
   sym_kWhile; sym_kWith]].

(** State 769. *)
Definition ts_parse_table_769 : parse_row :=
  [STATE 1204 [sym__procAttribute]; STATE 15235 [sym_procAttribute]; STATE 817 [sym_procExternal;
   aux_sym_declVar_repeat2]; ACTIONS 5722 [anon_sym_SEMI; anon_sym_COMMA];
   ACTIONS 5724 [anon_sym_LBRACK]; ACTIONS 5727 [anon_sym_LPAREN];
   ACTIONS 5722 [aux_sym__literalString_token1; anon_sym_POUND];
   ACTIONS 5727 [aux_sym__literalInt_token1]; ACTIONS 5722 [aux_sym__literalInt_token2;
   aux_sym__literalInt_token3]; ACTIONS 5727 [aux_sym__literalFloat_token1];
   ACTIONS 5722 [aux_sym_ppUsesBlock_token1; aux_sym_ppUsesBlock_token2;
   aux_sym_ppUsesBlock_token3]; ACTIONS 5727 [sym_kAdd; sym_kSub]; ACTIONS 5722 [sym_kAt;
   sym_kTrue; sym_kFalse]; ACTIONS 3 [sym__space]; ACTIONS 5 [sym_ppDirective];
   ACTIONS 3 [sym_comment]; ACTIONS 5722 [sym_ppFragmentExpr; sym__literalStringMultiline;
   sym_identifier]; ACTIONS 5729 [sym_kDefault; sym_kNodefault]; ACTIONS 5732 [sym_kDispId];
   ACTIONS 5722 [sym_kGeneric; sym_kSpecialize; sym_kOperator]; ACTIONS 5735 [sym_kPublic];
   ACTIONS 5729 [sym_kStatic; sym_kVirtual; sym_kAbstract; sym_kDynamic; sym_kOverride;
   sym_kOverload; sym_kReintroduce; sym_kStdcall; sym_kCdecl; sym_kCppdecl; sym_kPascal;
   sym_kRegister; sym_kMwpascal]; ACTIONS 3438 [sym_kExternal]; ACTIONS 5738 [sym_kMessage];
   ACTIONS 5741 [sym_kDeprecated]; ACTIONS 5729 [sym_kExperimental; sym_kPlatform;
   sym_kUnimplemented; sym_kCvar]; ACTIONS 5744 [sym_kExport]; ACTIONS 5729 [sym_kFar; sym_kNear;
   sym_kSafecall; sym_kAssembler; sym_kNostackframe; sym_kInterrupt; sym_kNoreturn; sym_kIocheck;
   sym_kLocal; sym_kHardfloat; sym_kSoftfloat; sym_kMs_abi_default; sym_kMs_abi_cdecl;
   sym_kSaveregisters; sym_kSysv_abi_default; sym_kSysv_abi_cdecl; sym_kVectorcall; sym_kVarargs;
   sym_kWinapi]; ACTIONS 5747 [sym_kAlias]; ACTIONS 5722 [sym_kAsm; sym_kBegin; sym_kCase;
   sym_kClass; sym_kConst; sym_kConstructor; sym_kDestructor; sym_kExports; sym_kFor;
   sym_kFunction; sym_kGoto; sym_kIf; sym_kInherited]; ACTIONS 1016 [sym_kInline];
   ACTIONS 5722 [sym_kLabel; sym_kNil; sym_kNot; sym_kProcedure; sym_kProperty; sym_kRaise;
   sym_kRepeat; sym_kResourcestring; sym_kString; sym_kThreadvar; sym_kTry; sym_kType; sym_kUses;
   sym_kVar; sym_kWhile; sym_kWith]].

(** State 770. *)
Definition ts_parse_table_770 : parse_row :=
  [STATE 2921 [sym__ppIf]; STATE 1214 [sym__procAttributeNoExt];
   STATE 1215 [sym__procAttributesPp]; STATE 15691 [sym_procAttribute];
   STATE 777 [aux_sym__declProc_repeat1]; ACTIONS 5750 [anon_sym_SEMI; anon_sym_COMMA];
   ACTIONS 5752 [anon_sym_LBRACK]; ACTIONS 5755 [anon_sym_LPAREN];
   ACTIONS 5750 [aux_sym__literalString_token1; anon_sym_POUND];
   ACTIONS 5755 [aux_sym__literalInt_token1]; ACTIONS 5750 [aux_sym__literalInt_token2;
   aux_sym__literalInt_token3]; ACTIONS 5755 [aux_sym__literalFloat_token1];
   ACTIONS 5757 [aux_sym_ppUsesBlock_token1]; ACTIONS 5750 [aux_sym_ppUsesBlock_token2;
   aux_sym_ppUsesBlock_token3]; ACTIONS 5755 [sym_kAdd; sym_kSub]; ACTIONS 5750 [sym_kAt;
   sym_kTrue; sym_kFalse]; ACTIONS 3 [sym__space]; ACTIONS 5 [sym_ppDirective];
   ACTIONS 3 [sym_comment]; ACTIONS 5750 [sym_ppFragmentExpr; sym__literalStringMultiline;
   sym_identifier]; ACTIONS 5760 [sym_kDefault; sym_kNodefault]; ACTIONS 5763 [sym_kDispId];
   ACTIONS 5750 [sym_kGeneric; sym_kSpecialize; sym_kOperator]; ACTIONS 5766 [sym_kPublic];
   ACTIONS 5760 [sym_kStatic; sym_kVirtual; sym_kAbstract; sym_kDynamic; sym_kOverride;
   sym_kOverload; sym_kReintroduce; sym_kStdcall; sym_kCdecl; sym_kCppdecl; sym_kPascal;
   sym_kRegister; sym_kMwpascal]; ACTIONS 5769 [sym_kMessage]; ACTIONS 5772 [sym_kDeprecated];
   ACTIONS 5760 [sym_kExperimental; sym_kPlatform; sym_kUnimplemented; sym_kCvar];
   ACTIONS 5775 [sym_kExport]; ACTIONS 5760 [sym_kFar; sym_kNear; sym_kSafecall; sym_kAssembler;
   sym_kNostackframe; sym_kInterrupt; sym_kNoreturn; sym_kIocheck; sym_kLocal; sym_kHardfloat;
   sym_kSoftfloat; sym_kMs_abi_default; sym_kMs_abi_cdecl; sym_kSaveregisters;
   sym_kSysv_abi_default; sym_kSysv_abi_cdecl; sym_kVectorcall; sym_kVarargs; sym_kWinapi];
   ACTIONS 5778 [sym_kAlias]; ACTIONS 5750 [sym_kAsm; sym_kBegin; sym_kCase; sym_kClass;
   sym_kConst; sym_kConstructor; sym_kDestructor; sym_kExports; sym_kFor; sym_kFunction;
   sym_kGoto; sym_kIf; sym_kInherited]; ACTIONS 1016 [sym_kInline]; ACTIONS 5750 [sym_kLabel;
   sym_kNil; sym_kNot; sym_kProcedure; sym_kProperty; sym_kRaise; sym_kRepeat;
   sym_kResourcestring; sym_kString; sym_kThreadvar; sym_kTry; sym_kType; sym_kUses; sym_kVar;
   sym_kWhile; sym_kWith]].

(** State 771. *)
Definition ts_parse_table_771 : parse_row :=
  [STATE 17 [sym__ppIf]; STATE 793 [sym_ppBlock; sym_declConst];
   STATE 15416 [sym_rttiAttributes]; STATE 793 [aux_sym_declConsts_repeat1];
   STATE 12776 [aux_sym_rttiAttributes_repeat2]; ACTIONS 5781 [anon_sym_SEMI; anon_sym_COMMA];
   ACTIONS 5783 [anon_sym_LBRACK]; ACTIONS 5786 [anon_sym_LPAREN];
   ACTIONS 5781 [aux_sym__literalString_token1; anon_sym_POUND];
   ACTIONS 5786 [aux_sym__literalInt_token1]; ACTIONS 5781 [aux_sym__literalInt_token2;
   aux_sym__literalInt_token3]; ACTIONS 5786 [aux_sym__literalFloat_token1];
   ACTIONS 5788 [aux_sym_ppUsesBlock_token1]; ACTIONS 5781 [aux_sym_ppUsesBlock_token2;
   aux_sym_ppUsesBlock_token3]; ACTIONS 5786 [sym_kAdd; sym_kSub]; ACTIONS 5781 [sym_kAt;
   sym_kTrue; sym_kFalse]; ACTIONS 3 [sym__space]; ACTIONS 5 [sym_ppDirective];
   ACTIONS 3 [sym_comment]; ACTIONS 5781 [sym_ppFragmentExpr; sym__literalStringMultiline];
   ACTIONS 5791 [sym_identifier]; ACTIONS 5781 [sym_kDefault; sym_kNodefault; sym_kDispId;
   sym_kGeneric; sym_kSpecialize; sym_kOperator; sym_kPublic; sym_kStatic; sym_kVirtual;
   sym_kAbstract; sym_kDynamic; sym_kOverride; sym_kOverload; sym_kReintroduce; sym_kStdcall;
   sym_kCdecl; sym_kCppdecl; sym_kPascal; sym_kRegister; sym_kMwpascal; sym_kMessage;
   sym_kDeprecated; sym_kExperimental; sym_kPlatform; sym_kUnimplemented; sym_kCvar; sym_kExport;
   sym_kFar; sym_kNear; sym_kSafecall; sym_kAssembler; sym_kNostackframe; sym_kInterrupt;
   sym_kNoreturn; sym_kIocheck; sym_kLocal; sym_kHardfloat; sym_kSoftfloat; sym_kMs_abi_default;
   sym_kMs_abi_cdecl; sym_kSaveregisters; sym_kSysv_abi_default; sym_kSysv_abi_cdecl;
   sym_kVectorcall; sym_kVarargs; sym_kWinapi; sym_kAlias; sym_kAsm; sym_kBegin; sym_kCase;
   sym_kClass; sym_kConst; sym_kConstructor; sym_kDestructor; sym_kExports; sym_kFor;
   sym_kFunction; sym_kGoto; sym_kIf; sym_kInherited; sym_kLabel; sym_kNil; sym_kNot;
   sym_kProcedure; sym_kProperty; sym_kRaise; sym_kRepeat; sym_kResourcestring; sym_kString;
   sym_kThreadvar; sym_kTry; sym_kType; sym_kUses; sym_kVar; sym_kWhile; sym_kWith]].

(** State 772. *)
Definition ts_parse_table_772 : parse_row :=
  [STATE 2921 [sym__ppIf]; STATE 1214 [sym__procAttributeNoExt];
   STATE 1215 [sym__procAttributesPp]; STATE 15691 [sym_procAttribute];
   STATE 775 [aux_sym__declProc_repeat1]; ACTIONS 2101 [anon_sym_SEMI; anon_sym_COMMA];
   ACTIONS 5794 [anon_sym_LBRACK]; ACTIONS 2106 [anon_sym_LPAREN];
   ACTIONS 2101 [aux_sym__literalString_token1; anon_sym_POUND];
   ACTIONS 2106 [aux_sym__literalInt_token1]; ACTIONS 2101 [aux_sym__literalInt_token2;
   aux_sym__literalInt_token3]; ACTIONS 2106 [aux_sym__literalFloat_token1];
   ACTIONS 2108 [aux_sym_ppUsesBlock_token1]; ACTIONS 2101 [aux_sym_ppUsesBlock_token2;
   aux_sym_ppUsesBlock_token3]; ACTIONS 2106 [sym_kAdd; sym_kSub]; ACTIONS 2101 [sym_kAt;
   sym_kTrue; sym_kFalse]; ACTIONS 3 [sym__space]; ACTIONS 5 [sym_ppDirective];
   ACTIONS 3 [sym_comment]; ACTIONS 2101 [sym_ppFragmentExpr; sym__literalStringMultiline;
   sym_identifier]; ACTIONS 2111 [sym_kDefault; sym_kNodefault]; ACTIONS 2114 [sym_kDispId];
   ACTIONS 2101 [sym_kGeneric; sym_kSpecialize; sym_kOperator]; ACTIONS 2117 [sym_kPublic];
   ACTIONS 2111 [sym_kStatic; sym_kVirtual; sym_kAbstract; sym_kDynamic; sym_kOverride;
   sym_kOverload; sym_kReintroduce; sym_kStdcall; sym_kCdecl; sym_kCppdecl; sym_kPascal;
   sym_kRegister; sym_kMwpascal]; ACTIONS 2120 [sym_kMessage]; ACTIONS 2123 [sym_kDeprecated];
   ACTIONS 2111 [sym_kExperimental; sym_kPlatform; sym_kUnimplemented; sym_kCvar];
   ACTIONS 2126 [sym_kExport]; ACTIONS 2111 [sym_kFar; sym_kNear; sym_kSafecall; sym_kAssembler;
   sym_kNostackframe; sym_kInterrupt; sym_kNoreturn; sym_kIocheck; sym_kLocal; sym_kHardfloat;
   sym_kSoftfloat; sym_kMs_abi_default; sym_kMs_abi_cdecl; sym_kSaveregisters;
   sym_kSysv_abi_default; sym_kSysv_abi_cdecl; sym_kVectorcall; sym_kVarargs; sym_kWinapi];
   ACTIONS 2129 [sym_kAlias]; ACTIONS 2101 [sym_kAsm; sym_kBegin; sym_kCase; sym_kClass;
   sym_kConst; sym_kConstructor; sym_kDestructor; sym_kExports; sym_kFor; sym_kFunction;
   sym_kGoto; sym_kIf; sym_kInherited]; ACTIONS 1016 [sym_kInline]; ACTIONS 2101 [sym_kLabel;
   sym_kNil; sym_kNot; sym_kProcedure; sym_kProperty; sym_kRaise; sym_kRepeat;
   sym_kResourcestring; sym_kString; sym_kThreadvar; sym_kTry; sym_kType; sym_kUses; sym_kVar;
   sym_kWhile; sym_kWith]].

(** State 773. *)
Definition ts_parse_table_773 : parse_row :=
  [STATE 1204 [sym__procAttribute]; STATE 15235 [sym_procAttribute]; STATE 817 [sym_procExternal;
   aux_sym_declVar_repeat2]; ACTIONS 5797 [anon_sym_SEMI; anon_sym_COMMA];
   ACTIONS 5799 [anon_sym_LBRACK]; ACTIONS 5802 [anon_sym_LPAREN];
   ACTIONS 5797 [aux_sym__literalString_token1; anon_sym_POUND];
   ACTIONS 5802 [aux_sym__literalInt_token1]; ACTIONS 5797 [aux_sym__literalInt_token2;
   aux_sym__literalInt_token3]; ACTIONS 5802 [aux_sym__literalFloat_token1];
   ACTIONS 5797 [aux_sym_ppUsesBlock_token1; aux_sym_ppUsesBlock_token2;
   aux_sym_ppUsesBlock_token3]; ACTIONS 5802 [sym_kAdd; sym_kSub]; ACTIONS 5797 [sym_kAt;
   sym_kTrue; sym_kFalse]; ACTIONS 3 [sym__space]; ACTIONS 5 [sym_ppDirective];
   ACTIONS 3 [sym_comment]; ACTIONS 5797 [sym_ppFragmentExpr; sym__literalStringMultiline;
   sym_identifier]; ACTIONS 5804 [sym_kDefault; sym_kNodefault]; ACTIONS 5807 [sym_kDispId];
   ACTIONS 5797 [sym_kGeneric; sym_kSpecialize; sym_kOperator]; ACTIONS 5810 [sym_kPublic];
   ACTIONS 5804 [sym_kStatic; sym_kVirtual; sym_kAbstract; sym_kDynamic; sym_kOverride;
   sym_kOverload; sym_kReintroduce; sym_kStdcall; sym_kCdecl; sym_kCppdecl; sym_kPascal;
   sym_kRegister; sym_kMwpascal]; ACTIONS 3438 [sym_kExternal]; ACTIONS 5813 [sym_kMessage];
   ACTIONS 5816 [sym_kDeprecated]; ACTIONS 5804 [sym_kExperimental; sym_kPlatform;
   sym_kUnimplemented; sym_kCvar]; ACTIONS 5819 [sym_kExport]; ACTIONS 5804 [sym_kFar; sym_kNear;
   sym_kSafecall; sym_kAssembler; sym_kNostackframe; sym_kInterrupt; sym_kNoreturn; sym_kIocheck;
   sym_kLocal; sym_kHardfloat; sym_kSoftfloat; sym_kMs_abi_default; sym_kMs_abi_cdecl;
   sym_kSaveregisters; sym_kSysv_abi_default; sym_kSysv_abi_cdecl; sym_kVectorcall; sym_kVarargs;
   sym_kWinapi]; ACTIONS 5822 [sym_kAlias]; ACTIONS 5797 [sym_kAsm; sym_kBegin; sym_kCase;
   sym_kClass; sym_kConst; sym_kConstructor; sym_kDestructor; sym_kExports; sym_kFor;
   sym_kFunction; sym_kGoto; sym_kIf; sym_kInherited]; ACTIONS 1016 [sym_kInline];
   ACTIONS 5797 [sym_kLabel; sym_kNil; sym_kNot; sym_kProcedure; sym_kProperty; sym_kRaise;
   sym_kRepeat; sym_kResourcestring; sym_kString; sym_kThreadvar; sym_kTry; sym_kType; sym_kUses;
   sym_kVar; sym_kWhile; sym_kWith]].

(** State 774. *)
Definition ts_parse_table_774 : parse_row :=
  [STATE 2921 [sym__ppIf]; STATE 1214 [sym__procAttributeNoExt];
   STATE 1215 [sym__procAttributesPp]; STATE 15691 [sym_procAttribute];
   STATE 748 [aux_sym__declProc_repeat1]; ACTIONS 5825 [anon_sym_SEMI; anon_sym_COMMA];
   ACTIONS 5827 [anon_sym_LBRACK]; ACTIONS 5830 [anon_sym_LPAREN];
   ACTIONS 5825 [aux_sym__literalString_token1; anon_sym_POUND];
   ACTIONS 5830 [aux_sym__literalInt_token1]; ACTIONS 5825 [aux_sym__literalInt_token2;
   aux_sym__literalInt_token3]; ACTIONS 5830 [aux_sym__literalFloat_token1];
   ACTIONS 5832 [aux_sym_ppUsesBlock_token1]; ACTIONS 5825 [aux_sym_ppUsesBlock_token2;
   aux_sym_ppUsesBlock_token3]; ACTIONS 5830 [sym_kAdd; sym_kSub]; ACTIONS 5825 [sym_kAt;
   sym_kTrue; sym_kFalse]; ACTIONS 3 [sym__space]; ACTIONS 5 [sym_ppDirective];
   ACTIONS 3 [sym_comment]; ACTIONS 5825 [sym_ppFragmentExpr; sym__literalStringMultiline;
   sym_identifier]; ACTIONS 5835 [sym_kDefault; sym_kNodefault]; ACTIONS 5838 [sym_kDispId];
   ACTIONS 5825 [sym_kGeneric; sym_kSpecialize; sym_kOperator]; ACTIONS 5841 [sym_kPublic];
   ACTIONS 5835 [sym_kStatic; sym_kVirtual; sym_kAbstract; sym_kDynamic; sym_kOverride;
   sym_kOverload; sym_kReintroduce; sym_kStdcall; sym_kCdecl; sym_kCppdecl; sym_kPascal;
   sym_kRegister; sym_kMwpascal]; ACTIONS 5844 [sym_kMessage]; ACTIONS 5847 [sym_kDeprecated];
   ACTIONS 5835 [sym_kExperimental; sym_kPlatform; sym_kUnimplemented; sym_kCvar];
   ACTIONS 5850 [sym_kExport]; ACTIONS 5835 [sym_kFar; sym_kNear; sym_kSafecall; sym_kAssembler;
   sym_kNostackframe; sym_kInterrupt; sym_kNoreturn; sym_kIocheck; sym_kLocal; sym_kHardfloat;
   sym_kSoftfloat; sym_kMs_abi_default; sym_kMs_abi_cdecl; sym_kSaveregisters;
   sym_kSysv_abi_default; sym_kSysv_abi_cdecl; sym_kVectorcall; sym_kVarargs; sym_kWinapi];
   ACTIONS 5853 [sym_kAlias]; ACTIONS 5825 [sym_kAsm; sym_kBegin; sym_kCase; sym_kClass;
   sym_kConst; sym_kConstructor; sym_kDestructor; sym_kExports; sym_kFor; sym_kFunction;
   sym_kGoto; sym_kIf; sym_kInherited]; ACTIONS 1016 [sym_kInline]; ACTIONS 5825 [sym_kLabel;
   sym_kNil; sym_kNot; sym_kProcedure; sym_kProperty; sym_kRaise; sym_kRepeat;
   sym_kResourcestring; sym_kString; sym_kThreadvar; sym_kTry; sym_kType; sym_kUses; sym_kVar;
   sym_kWhile; sym_kWith]].

(** State 775. *)
Definition ts_parse_table_775 : parse_row :=
  [STATE 2921 [sym__ppIf]; STATE 1214 [sym__procAttributeNoExt];
   STATE 1215 [sym__procAttributesPp]; STATE 15691 [sym_procAttribute];
   STATE 777 [aux_sym__declProc_repeat1]; ACTIONS 2732 [anon_sym_SEMI; anon_sym_COMMA];
   ACTIONS 5856 [anon_sym_LBRACK]; ACTIONS 2737 [anon_sym_LPAREN];
   ACTIONS 2732 [aux_sym__literalString_token1; anon_sym_POUND];
   ACTIONS 2737 [aux_sym__literalInt_token1]; ACTIONS 2732 [aux_sym__literalInt_token2;
   aux_sym__literalInt_token3]; ACTIONS 2737 [aux_sym__literalFloat_token1];
   ACTIONS 2739 [aux_sym_ppUsesBlock_token1]; ACTIONS 2732 [aux_sym_ppUsesBlock_token2;
   aux_sym_ppUsesBlock_token3]; ACTIONS 2737 [sym_kAdd; sym_kSub]; ACTIONS 2732 [sym_kAt;
   sym_kTrue; sym_kFalse]; ACTIONS 3 [sym__space]; ACTIONS 5 [sym_ppDirective];
   ACTIONS 3 [sym_comment]; ACTIONS 2732 [sym_ppFragmentExpr; sym__literalStringMultiline;
   sym_identifier]; ACTIONS 2742 [sym_kDefault; sym_kNodefault]; ACTIONS 2745 [sym_kDispId];
   ACTIONS 2732 [sym_kGeneric; sym_kSpecialize; sym_kOperator]; ACTIONS 2748 [sym_kPublic];
   ACTIONS 2742 [sym_kStatic; sym_kVirtual; sym_kAbstract; sym_kDynamic; sym_kOverride;
   sym_kOverload; sym_kReintroduce; sym_kStdcall; sym_kCdecl; sym_kCppdecl; sym_kPascal;
   sym_kRegister; sym_kMwpascal]; ACTIONS 2751 [sym_kMessage]; ACTIONS 2754 [sym_kDeprecated];
   ACTIONS 2742 [sym_kExperimental; sym_kPlatform; sym_kUnimplemented; sym_kCvar];
   ACTIONS 2757 [sym_kExport]; ACTIONS 2742 [sym_kFar; sym_kNear; sym_kSafecall; sym_kAssembler;
   sym_kNostackframe; sym_kInterrupt; sym_kNoreturn; sym_kIocheck; sym_kLocal; sym_kHardfloat;
   sym_kSoftfloat; sym_kMs_abi_default; sym_kMs_abi_cdecl; sym_kSaveregisters;
   sym_kSysv_abi_default; sym_kSysv_abi_cdecl; sym_kVectorcall; sym_kVarargs; sym_kWinapi];
   ACTIONS 2760 [sym_kAlias]; ACTIONS 2732 [sym_kAsm; sym_kBegin; sym_kCase; sym_kClass;
   sym_kConst; sym_kConstructor; sym_kDestructor; sym_kExports; sym_kFor; sym_kFunction;
   sym_kGoto; sym_kIf; sym_kInherited]; ACTIONS 1016 [sym_kInline]; ACTIONS 2732 [sym_kLabel;
   sym_kNil; sym_kNot; sym_kProcedure; sym_kProperty; sym_kRaise; sym_kRepeat;
   sym_kResourcestring; sym_kString; sym_kThreadvar; sym_kTry; sym_kType; sym_kUses; sym_kVar;
   sym_kWhile; sym_kWith]].

(** State 776. *)
Definition ts_parse_table_776 : parse_row :=
  [STATE 2921 [sym__ppIf]; STATE 1214 [sym__procAttributeNoExt];
   STATE 1215 [sym__procAttributesPp]; STATE 15691 [sym_procAttribute];
   STATE 754 [aux_sym__declProc_repeat1]; ACTIONS 5859 [anon_sym_SEMI; anon_sym_COMMA];
   ACTIONS 5861 [anon_sym_LBRACK]; ACTIONS 5864 [anon_sym_LPAREN];
   ACTIONS 5859 [aux_sym__literalString_token1; anon_sym_POUND];
   ACTIONS 5864 [aux_sym__literalInt_token1]; ACTIONS 5859 [aux_sym__literalInt_token2;
   aux_sym__literalInt_token3]; ACTIONS 5864 [aux_sym__literalFloat_token1];
   ACTIONS 5866 [aux_sym_ppUsesBlock_token1]; ACTIONS 5859 [aux_sym_ppUsesBlock_token2;
   aux_sym_ppUsesBlock_token3]; ACTIONS 5864 [sym_kAdd; sym_kSub]; ACTIONS 5859 [sym_kAt;
   sym_kTrue; sym_kFalse]; ACTIONS 3 [sym__space]; ACTIONS 5 [sym_ppDirective];
   ACTIONS 3 [sym_comment]; ACTIONS 5859 [sym_ppFragmentExpr; sym__literalStringMultiline;
   sym_identifier]; ACTIONS 5869 [sym_kDefault; sym_kNodefault]; ACTIONS 5872 [sym_kDispId];
   ACTIONS 5859 [sym_kGeneric; sym_kSpecialize; sym_kOperator]; ACTIONS 5875 [sym_kPublic];
   ACTIONS 5869 [sym_kStatic; sym_kVirtual; sym_kAbstract; sym_kDynamic; sym_kOverride;
   sym_kOverload; sym_kReintroduce; sym_kStdcall; sym_kCdecl; sym_kCppdecl; sym_kPascal;
   sym_kRegister; sym_kMwpascal]; ACTIONS 5878 [sym_kMessage]; ACTIONS 5881 [sym_kDeprecated];
   ACTIONS 5869 [sym_kExperimental; sym_kPlatform; sym_kUnimplemented; sym_kCvar];
   ACTIONS 5884 [sym_kExport]; ACTIONS 5869 [sym_kFar; sym_kNear; sym_kSafecall; sym_kAssembler;
   sym_kNostackframe; sym_kInterrupt; sym_kNoreturn; sym_kIocheck; sym_kLocal; sym_kHardfloat;
   sym_kSoftfloat; sym_kMs_abi_default; sym_kMs_abi_cdecl; sym_kSaveregisters;
   sym_kSysv_abi_default; sym_kSysv_abi_cdecl; sym_kVectorcall; sym_kVarargs; sym_kWinapi];
   ACTIONS 5887 [sym_kAlias]; ACTIONS 5859 [sym_kAsm; sym_kBegin; sym_kCase; sym_kClass;
   sym_kConst; sym_kConstructor; sym_kDestructor; sym_kExports; sym_kFor; sym_kFunction;
   sym_kGoto; sym_kIf; sym_kInherited]; ACTIONS 1016 [sym_kInline]; ACTIONS 5859 [sym_kLabel;
   sym_kNil; sym_kNot; sym_kProcedure; sym_kProperty; sym_kRaise; sym_kRepeat;
   sym_kResourcestring; sym_kString; sym_kThreadvar; sym_kTry; sym_kType; sym_kUses; sym_kVar;
   sym_kWhile; sym_kWith]].

(** State 777. *)
Definition ts_parse_table_777 : parse_row :=
  [STATE 2921 [sym__ppIf]; STATE 1214 [sym__procAttributeNoExt];
   STATE 1215 [sym__procAttributesPp]; STATE 15691 [sym_procAttribute];
   STATE 777 [aux_sym__declProc_repeat1]; ACTIONS 1173 [anon_sym_SEMI; anon_sym_COMMA];
   ACTIONS 5890 [anon_sym_LBRACK]; ACTIONS 1178 [anon_sym_LPAREN];
   ACTIONS 1173 [aux_sym__literalString_token1; anon_sym_POUND];
   ACTIONS 1178 [aux_sym__literalInt_token1]; ACTIONS 1173 [aux_sym__literalInt_token2;
   aux_sym__literalInt_token3]; ACTIONS 1178 [aux_sym__literalFloat_token1];
   ACTIONS 1180 [aux_sym_ppUsesBlock_token1]; ACTIONS 1173 [aux_sym_ppUsesBlock_token2;
   aux_sym_ppUsesBlock_token3]; ACTIONS 1178 [sym_kAdd; sym_kSub]; ACTIONS 1173 [sym_kAt;
   sym_kTrue; sym_kFalse]; ACTIONS 3 [sym__space]; ACTIONS 5 [sym_ppDirective];
   ACTIONS 3 [sym_comment]; ACTIONS 1173 [sym_ppFragmentExpr; sym__literalStringMultiline;
   sym_identifier]; ACTIONS 1183 [sym_kDefault; sym_kNodefault]; ACTIONS 1186 [sym_kDispId];
   ACTIONS 1173 [sym_kGeneric; sym_kSpecialize; sym_kOperator]; ACTIONS 1189 [sym_kPublic];
   ACTIONS 1183 [sym_kStatic; sym_kVirtual; sym_kAbstract; sym_kDynamic; sym_kOverride;
   sym_kOverload; sym_kReintroduce; sym_kStdcall; sym_kCdecl; sym_kCppdecl; sym_kPascal;
   sym_kRegister; sym_kMwpascal]; ACTIONS 1192 [sym_kMessage]; ACTIONS 1195 [sym_kDeprecated];
   ACTIONS 1183 [sym_kExperimental; sym_kPlatform; sym_kUnimplemented; sym_kCvar];
   ACTIONS 1198 [sym_kExport]; ACTIONS 1183 [sym_kFar; sym_kNear; sym_kSafecall; sym_kAssembler;
   sym_kNostackframe; sym_kInterrupt; sym_kNoreturn; sym_kIocheck; sym_kLocal; sym_kHardfloat;
   sym_kSoftfloat; sym_kMs_abi_default; sym_kMs_abi_cdecl; sym_kSaveregisters;
   sym_kSysv_abi_default; sym_kSysv_abi_cdecl; sym_kVectorcall; sym_kVarargs; sym_kWinapi];
   ACTIONS 1201 [sym_kAlias]; ACTIONS 1173 [sym_kAsm; sym_kBegin; sym_kCase; sym_kClass;
   sym_kConst; sym_kConstructor; sym_kDestructor; sym_kExports; sym_kFor; sym_kFunction;
   sym_kGoto; sym_kIf; sym_kInherited]; ACTIONS 1183 [sym_kInline]; ACTIONS 1173 [sym_kLabel;
   sym_kNil; sym_kNot; sym_kProcedure; sym_kProperty; sym_kRaise; sym_kRepeat;
   sym_kResourcestring; sym_kString; sym_kThreadvar; sym_kTry; sym_kType; sym_kUses; sym_kVar;
   sym_kWhile; sym_kWith]].

(** State 778. *)
Definition ts_parse_table_778 : parse_row :=
  [STATE 2921 [sym__ppIf]; STATE 1214 [sym__procAttributeNoExt];
   STATE 1215 [sym__procAttributesPp]; STATE 15691 [sym_procAttribute];
   STATE 788 [aux_sym__declProc_repeat1]; ACTIONS 5893 [anon_sym_SEMI; anon_sym_COMMA];
   ACTIONS 5895 [anon_sym_LBRACK]; ACTIONS 5898 [anon_sym_LPAREN];
   ACTIONS 5893 [aux_sym__literalString_token1; anon_sym_POUND];
   ACTIONS 5898 [aux_sym__literalInt_token1]; ACTIONS 5893 [aux_sym__literalInt_token2;
   aux_sym__literalInt_token3]; ACTIONS 5898 [aux_sym__literalFloat_token1];
   ACTIONS 5900 [aux_sym_ppUsesBlock_token1]; ACTIONS 5893 [aux_sym_ppUsesBlock_token2;
   aux_sym_ppUsesBlock_token3]; ACTIONS 5898 [sym_kAdd; sym_kSub]; ACTIONS 5893 [sym_kAt;
   sym_kTrue; sym_kFalse]; ACTIONS 3 [sym__space]; ACTIONS 5 [sym_ppDirective];
   ACTIONS 3 [sym_comment]; ACTIONS 5893 [sym_ppFragmentExpr; sym__literalStringMultiline;
   sym_identifier]; ACTIONS 5903 [sym_kDefault; sym_kNodefault]; ACTIONS 5906 [sym_kDispId];
   ACTIONS 5893 [sym_kGeneric; sym_kSpecialize; sym_kOperator]; ACTIONS 5909 [sym_kPublic];
   ACTIONS 5903 [sym_kStatic; sym_kVirtual; sym_kAbstract; sym_kDynamic; sym_kOverride;
   sym_kOverload; sym_kReintroduce; sym_kStdcall; sym_kCdecl; sym_kCppdecl; sym_kPascal;
   sym_kRegister; sym_kMwpascal]; ACTIONS 5912 [sym_kMessage]; ACTIONS 5915 [sym_kDeprecated];
   ACTIONS 5903 [sym_kExperimental; sym_kPlatform; sym_kUnimplemented; sym_kCvar];
   ACTIONS 5918 [sym_kExport]; ACTIONS 5903 [sym_kFar; sym_kNear; sym_kSafecall; sym_kAssembler;
   sym_kNostackframe; sym_kInterrupt; sym_kNoreturn; sym_kIocheck; sym_kLocal; sym_kHardfloat;
   sym_kSoftfloat; sym_kMs_abi_default; sym_kMs_abi_cdecl; sym_kSaveregisters;
   sym_kSysv_abi_default; sym_kSysv_abi_cdecl; sym_kVectorcall; sym_kVarargs; sym_kWinapi];
   ACTIONS 5921 [sym_kAlias]; ACTIONS 5893 [sym_kAsm; sym_kBegin; sym_kCase; sym_kClass;
   sym_kConst; sym_kConstructor; sym_kDestructor; sym_kExports; sym_kFor; sym_kFunction;
   sym_kGoto; sym_kIf; sym_kInherited]; ACTIONS 1016 [sym_kInline]; ACTIONS 5893 [sym_kLabel;
   sym_kNil; sym_kNot; sym_kProcedure; sym_kProperty; sym_kRaise; sym_kRepeat;
   sym_kResourcestring; sym_kString; sym_kThreadvar; sym_kTry; sym_kType; sym_kUses; sym_kVar;
   sym_kWhile; sym_kWith]].

(** State 779. *)
Definition ts_parse_table_779 : parse_row :=
  [STATE 2921 [sym__ppIf]; STATE 1214 [sym__procAttributeNoExt];
   STATE 1215 [sym__procAttributesPp]; STATE 15691 [sym_procAttribute];
   STATE 777 [aux_sym__declProc_repeat1]; ACTIONS 2273 [anon_sym_SEMI; anon_sym_COMMA];
   ACTIONS 5924 [anon_sym_LBRACK]; ACTIONS 2278 [anon_sym_LPAREN];
   ACTIONS 2273 [aux_sym__literalString_token1; anon_sym_POUND];
   ACTIONS 2278 [aux_sym__literalInt_token1]; ACTIONS 2273 [aux_sym__literalInt_token2;
   aux_sym__literalInt_token3]; ACTIONS 2278 [aux_sym__literalFloat_token1];
   ACTIONS 2280 [aux_sym_ppUsesBlock_token1]; ACTIONS 2273 [aux_sym_ppUsesBlock_token2;
   aux_sym_ppUsesBlock_token3]; ACTIONS 2278 [sym_kAdd; sym_kSub]; ACTIONS 2273 [sym_kAt;
   sym_kTrue; sym_kFalse]; ACTIONS 3 [sym__space]; ACTIONS 5 [sym_ppDirective];
   ACTIONS 3 [sym_comment]; ACTIONS 2273 [sym_ppFragmentExpr; sym__literalStringMultiline;
   sym_identifier]; ACTIONS 2283 [sym_kDefault; sym_kNodefault]; ACTIONS 2286 [sym_kDispId];
   ACTIONS 2273 [sym_kGeneric; sym_kSpecialize; sym_kOperator]; ACTIONS 2289 [sym_kPublic];
   ACTIONS 2283 [sym_kStatic; sym_kVirtual; sym_kAbstract; sym_kDynamic; sym_kOverride;
   sym_kOverload; sym_kReintroduce; sym_kStdcall; sym_kCdecl; sym_kCppdecl; sym_kPascal;
   sym_kRegister; sym_kMwpascal]; ACTIONS 2292 [sym_kMessage]; ACTIONS 2295 [sym_kDeprecated];
   ACTIONS 2283 [sym_kExperimental; sym_kPlatform; sym_kUnimplemented; sym_kCvar];
   ACTIONS 2298 [sym_kExport]; ACTIONS 2283 [sym_kFar; sym_kNear; sym_kSafecall; sym_kAssembler;
   sym_kNostackframe; sym_kInterrupt; sym_kNoreturn; sym_kIocheck; sym_kLocal; sym_kHardfloat;
   sym_kSoftfloat; sym_kMs_abi_default; sym_kMs_abi_cdecl; sym_kSaveregisters;
   sym_kSysv_abi_default; sym_kSysv_abi_cdecl; sym_kVectorcall; sym_kVarargs; sym_kWinapi];
   ACTIONS 2301 [sym_kAlias]; ACTIONS 2273 [sym_kAsm; sym_kBegin; sym_kCase; sym_kClass;
   sym_kConst; sym_kConstructor; sym_kDestructor; sym_kExports; sym_kFor; sym_kFunction;
   sym_kGoto; sym_kIf; sym_kInherited]; ACTIONS 1016 [sym_kInline]; ACTIONS 2273 [sym_kLabel;
   sym_kNil; sym_kNot; sym_kProcedure; sym_kProperty; sym_kRaise; sym_kRepeat;
   sym_kResourcestring; sym_kString; sym_kThreadvar; sym_kTry; sym_kType; sym_kUses; sym_kVar;
   sym_kWhile; sym_kWith]].

(** State 780. *)
Definition ts_parse_table_780 : parse_row :=
  [STATE 2921 [sym__ppIf]; STATE 1214 [sym__procAttributeNoExt];
   STATE 1215 [sym__procAttributesPp]; STATE 15691 [sym_procAttribute];
   STATE 791 [aux_sym__declProc_repeat1]; ACTIONS 5927 [anon_sym_SEMI; anon_sym_COMMA];
   ACTIONS 5929 [anon_sym_LBRACK]; ACTIONS 5932 [anon_sym_LPAREN];
   ACTIONS 5927 [aux_sym__literalString_token1; anon_sym_POUND];
   ACTIONS 5932 [aux_sym__literalInt_token1]; ACTIONS 5927 [aux_sym__literalInt_token2;
   aux_sym__literalInt_token3]; ACTIONS 5932 [aux_sym__literalFloat_token1];
   ACTIONS 5934 [aux_sym_ppUsesBlock_token1]; ACTIONS 5927 [aux_sym_ppUsesBlock_token2;
   aux_sym_ppUsesBlock_token3]; ACTIONS 5932 [sym_kAdd; sym_kSub]; ACTIONS 5927 [sym_kAt;
   sym_kTrue; sym_kFalse]; ACTIONS 3 [sym__space]; ACTIONS 5 [sym_ppDirective];
   ACTIONS 3 [sym_comment]; ACTIONS 5927 [sym_ppFragmentExpr; sym__literalStringMultiline;
   sym_identifier]; ACTIONS 5937 [sym_kDefault; sym_kNodefault]; ACTIONS 5940 [sym_kDispId];
   ACTIONS 5927 [sym_kGeneric; sym_kSpecialize; sym_kOperator]; ACTIONS 5943 [sym_kPublic];
   ACTIONS 5937 [sym_kStatic; sym_kVirtual; sym_kAbstract; sym_kDynamic; sym_kOverride;
   sym_kOverload; sym_kReintroduce; sym_kStdcall; sym_kCdecl; sym_kCppdecl; sym_kPascal;
   sym_kRegister; sym_kMwpascal]; ACTIONS 5946 [sym_kMessage]; ACTIONS 5949 [sym_kDeprecated];
   ACTIONS 5937 [sym_kExperimental; sym_kPlatform; sym_kUnimplemented; sym_kCvar];
   ACTIONS 5952 [sym_kExport]; ACTIONS 5937 [sym_kFar; sym_kNear; sym_kSafecall; sym_kAssembler;
   sym_kNostackframe; sym_kInterrupt; sym_kNoreturn; sym_kIocheck; sym_kLocal; sym_kHardfloat;
   sym_kSoftfloat; sym_kMs_abi_default; sym_kMs_abi_cdecl; sym_kSaveregisters;
   sym_kSysv_abi_default; sym_kSysv_abi_cdecl; sym_kVectorcall; sym_kVarargs; sym_kWinapi];
   ACTIONS 5955 [sym_kAlias]; ACTIONS 5927 [sym_kAsm; sym_kBegin; sym_kCase; sym_kClass;
   sym_kConst; sym_kConstructor; sym_kDestructor; sym_kExports; sym_kFor; sym_kFunction;
   sym_kGoto; sym_kIf; sym_kInherited]; ACTIONS 1016 [sym_kInline]; ACTIONS 5927 [sym_kLabel;
   sym_kNil; sym_kNot; sym_kProcedure; sym_kProperty; sym_kRaise; sym_kRepeat;
   sym_kResourcestring; sym_kString; sym_kThreadvar; sym_kTry; sym_kType; sym_kUses; sym_kVar;
   sym_kWhile; sym_kWith]].

(** State 781. *)
Definition ts_parse_table_781 : parse_row :=
  [STATE 1204 [sym__procAttribute]; STATE 15235 [sym_procAttribute]; STATE 825 [sym_procExternal;
   aux_sym_declVar_repeat2]; ACTIONS 5958 [anon_sym_SEMI; anon_sym_COMMA];
   ACTIONS 5961 [anon_sym_LBRACK]; ACTIONS 5965 [anon_sym_LPAREN];
   ACTIONS 5958 [aux_sym__literalString_token1; anon_sym_POUND];
   ACTIONS 5965 [aux_sym__literalInt_token1]; ACTIONS 5958 [aux_sym__literalInt_token2;
   aux_sym__literalInt_token3]; ACTIONS 5965 [aux_sym__literalFloat_token1];
   ACTIONS 5958 [aux_sym_ppUsesBlock_token1; aux_sym_ppUsesBlock_token2;
   aux_sym_ppUsesBlock_token3]; ACTIONS 5965 [sym_kAdd; sym_kSub]; ACTIONS 5958 [sym_kAt;
   sym_kTrue; sym_kFalse]; ACTIONS 3 [sym__space]; ACTIONS 5 [sym_ppDirective];
   ACTIONS 3 [sym_comment]; ACTIONS 5958 [sym_ppFragmentExpr; sym__literalStringMultiline;
   sym_identifier]; ACTIONS 5968 [sym_kDefault; sym_kNodefault]; ACTIONS 5972 [sym_kDispId];
   ACTIONS 5958 [sym_kGeneric; sym_kSpecialize; sym_kOperator]; ACTIONS 5976 [sym_kPublic];
   ACTIONS 5968 [sym_kStatic; sym_kVirtual; sym_kAbstract; sym_kDynamic; sym_kOverride;
   sym_kOverload; sym_kReintroduce; sym_kStdcall; sym_kCdecl; sym_kCppdecl; sym_kPascal;
   sym_kRegister; sym_kMwpascal]; ACTIONS 3438 [sym_kExternal]; ACTIONS 5980 [sym_kMessage];
   ACTIONS 5984 [sym_kDeprecated]; ACTIONS 5968 [sym_kExperimental; sym_kPlatform;
   sym_kUnimplemented; sym_kCvar]; ACTIONS 5988 [sym_kExport]; ACTIONS 5968 [sym_kFar; sym_kNear;
   sym_kSafecall; sym_kAssembler; sym_kNostackframe; sym_kInterrupt; sym_kNoreturn; sym_kIocheck;
   sym_kLocal; sym_kHardfloat; sym_kSoftfloat; sym_kMs_abi_default; sym_kMs_abi_cdecl;
   sym_kSaveregisters; sym_kSysv_abi_default; sym_kSysv_abi_cdecl; sym_kVectorcall; sym_kVarargs;
   sym_kWinapi]; ACTIONS 5992 [sym_kAlias]; ACTIONS 5958 [sym_kAsm; sym_kBegin; sym_kCase;
   sym_kClass; sym_kConst; sym_kConstructor; sym_kDestructor; sym_kExports; sym_kFor;
   sym_kFunction; sym_kGoto; sym_kIf; sym_kInherited]; ACTIONS 1016 [sym_kInline];
   ACTIONS 5958 [sym_kLabel; sym_kNil; sym_kNot; sym_kProcedure; sym_kProperty; sym_kRaise;
   sym_kRepeat; sym_kResourcestring; sym_kString; sym_kThreadvar; sym_kTry; sym_kType; sym_kUses;
   sym_kVar; sym_kWhile; sym_kWith]].

(** State 782. *)
Definition ts_parse_table_782 : parse_row :=
  [STATE 2921 [sym__ppIf]; STATE 1214 [sym__procAttributeNoExt];
   STATE 1215 [sym__procAttributesPp]; STATE 15691 [sym_procAttribute];
   STATE 777 [aux_sym__declProc_repeat1]; ACTIONS 5996 [anon_sym_SEMI; anon_sym_COMMA];
   ACTIONS 5998 [anon_sym_LBRACK]; ACTIONS 6001 [anon_sym_LPAREN];
   ACTIONS 5996 [aux_sym__literalString_token1; anon_sym_POUND];
   ACTIONS 6001 [aux_sym__literalInt_token1]; ACTIONS 5996 [aux_sym__literalInt_token2;
   aux_sym__literalInt_token3]; ACTIONS 6001 [aux_sym__literalFloat_token1];
   ACTIONS 6003 [aux_sym_ppUsesBlock_token1]; ACTIONS 5996 [aux_sym_ppUsesBlock_token2;
   aux_sym_ppUsesBlock_token3]; ACTIONS 6001 [sym_kAdd; sym_kSub]; ACTIONS 5996 [sym_kAt;
   sym_kTrue; sym_kFalse]; ACTIONS 3 [sym__space]; ACTIONS 5 [sym_ppDirective];
   ACTIONS 3 [sym_comment]; ACTIONS 5996 [sym_ppFragmentExpr; sym__literalStringMultiline;
   sym_identifier]; ACTIONS 6006 [sym_kDefault; sym_kNodefault]; ACTIONS 6009 [sym_kDispId];
   ACTIONS 5996 [sym_kGeneric; sym_kSpecialize; sym_kOperator]; ACTIONS 6012 [sym_kPublic];
   ACTIONS 6006 [sym_kStatic; sym_kVirtual; sym_kAbstract; sym_kDynamic; sym_kOverride;
   sym_kOverload; sym_kReintroduce; sym_kStdcall; sym_kCdecl; sym_kCppdecl; sym_kPascal;
   sym_kRegister; sym_kMwpascal]; ACTIONS 6015 [sym_kMessage]; ACTIONS 6018 [sym_kDeprecated];
   ACTIONS 6006 [sym_kExperimental; sym_kPlatform; sym_kUnimplemented; sym_kCvar];
   ACTIONS 6021 [sym_kExport]; ACTIONS 6006 [sym_kFar; sym_kNear; sym_kSafecall; sym_kAssembler;
   sym_kNostackframe; sym_kInterrupt; sym_kNoreturn; sym_kIocheck; sym_kLocal; sym_kHardfloat;
   sym_kSoftfloat; sym_kMs_abi_default; sym_kMs_abi_cdecl; sym_kSaveregisters;
   sym_kSysv_abi_default; sym_kSysv_abi_cdecl; sym_kVectorcall; sym_kVarargs; sym_kWinapi];
   ACTIONS 6024 [sym_kAlias]; ACTIONS 5996 [sym_kAsm; sym_kBegin; sym_kCase; sym_kClass;
   sym_kConst; sym_kConstructor; sym_kDestructor; sym_kExports; sym_kFor; sym_kFunction;
   sym_kGoto; sym_kIf; sym_kInherited]; ACTIONS 1016 [sym_kInline]; ACTIONS 5996 [sym_kLabel;
   sym_kNil; sym_kNot; sym_kProcedure; sym_kProperty; sym_kRaise; sym_kRepeat;
   sym_kResourcestring; sym_kString; sym_kThreadvar; sym_kTry; sym_kType; sym_kUses; sym_kVar;
   sym_kWhile; sym_kWith]].

(** State 783. *)
Definition ts_parse_table_783 : parse_row :=
  [STATE 2921 [sym__ppIf]; STATE 1214 [sym__procAttributeNoExt];
   STATE 1215 [sym__procAttributesPp]; STATE 15691 [sym_procAttribute];
   STATE 777 [aux_sym__declProc_repeat1]; ACTIONS 6027 [anon_sym_SEMI; anon_sym_COMMA];
   ACTIONS 6029 [anon_sym_LBRACK]; ACTIONS 6032 [anon_sym_LPAREN];
   ACTIONS 6027 [aux_sym__literalString_token1; anon_sym_POUND];
   ACTIONS 6032 [aux_sym__literalInt_token1]; ACTIONS 6027 [aux_sym__literalInt_token2;
   aux_sym__literalInt_token3]; ACTIONS 6032 [aux_sym__literalFloat_token1];
   ACTIONS 6034 [aux_sym_ppUsesBlock_token1]; ACTIONS 6027 [aux_sym_ppUsesBlock_token2;
   aux_sym_ppUsesBlock_token3]; ACTIONS 6032 [sym_kAdd; sym_kSub]; ACTIONS 6027 [sym_kAt;
   sym_kTrue; sym_kFalse]; ACTIONS 3 [sym__space]; ACTIONS 5 [sym_ppDirective];
   ACTIONS 3 [sym_comment]; ACTIONS 6027 [sym_ppFragmentExpr; sym__literalStringMultiline;
   sym_identifier]; ACTIONS 6037 [sym_kDefault; sym_kNodefault]; ACTIONS 6040 [sym_kDispId];
   ACTIONS 6027 [sym_kGeneric; sym_kSpecialize; sym_kOperator]; ACTIONS 6043 [sym_kPublic];
   ACTIONS 6037 [sym_kStatic; sym_kVirtual; sym_kAbstract; sym_kDynamic; sym_kOverride;
   sym_kOverload; sym_kReintroduce; sym_kStdcall; sym_kCdecl; sym_kCppdecl; sym_kPascal;
   sym_kRegister; sym_kMwpascal]; ACTIONS 6046 [sym_kMessage]; ACTIONS 6049 [sym_kDeprecated];
   ACTIONS 6037 [sym_kExperimental; sym_kPlatform; sym_kUnimplemented; sym_kCvar];
   ACTIONS 6052 [sym_kExport]; ACTIONS 6037 [sym_kFar; sym_kNear; sym_kSafecall; sym_kAssembler;
   sym_kNostackframe; sym_kInterrupt; sym_kNoreturn; sym_kIocheck; sym_kLocal; sym_kHardfloat;
   sym_kSoftfloat; sym_kMs_abi_default; sym_kMs_abi_cdecl; sym_kSaveregisters;
   sym_kSysv_abi_default; sym_kSysv_abi_cdecl; sym_kVectorcall; sym_kVarargs; sym_kWinapi];
   ACTIONS 6055 [sym_kAlias]; ACTIONS 6027 [sym_kAsm; sym_kBegin; sym_kCase; sym_kClass;
   sym_kConst; sym_kConstructor; sym_kDestructor; sym_kExports; sym_kFor; sym_kFunction;
   sym_kGoto; sym_kIf; sym_kInherited]; ACTIONS 1016 [sym_kInline]; ACTIONS 6027 [sym_kLabel;
   sym_kNil; sym_kNot; sym_kProcedure; sym_kProperty; sym_kRaise; sym_kRepeat;
   sym_kResourcestring; sym_kString; sym_kThreadvar; sym_kTry; sym_kType; sym_kUses; sym_kVar;
   sym_kWhile; sym_kWith]].

(** State 784. *)
Definition ts_parse_table_784 : parse_row :=
  [STATE 2921 [sym__ppIf]; STATE 1214 [sym__procAttributeNoExt];
   STATE 1215 [sym__procAttributesPp]; STATE 15691 [sym_procAttribute];
   STATE 777 [aux_sym__declProc_repeat1]; ACTIONS 1049 [anon_sym_SEMI; anon_sym_COMMA];
   ACTIONS 6058 [anon_sym_LBRACK]; ACTIONS 1054 [anon_sym_LPAREN];
   ACTIONS 1049 [aux_sym__literalString_token1; anon_sym_POUND];
   ACTIONS 1054 [aux_sym__literalInt_token1]; ACTIONS 1049 [aux_sym__literalInt_token2;
   aux_sym__literalInt_token3]; ACTIONS 1054 [aux_sym__literalFloat_token1];
   ACTIONS 1056 [aux_sym_ppUsesBlock_token1]; ACTIONS 1049 [aux_sym_ppUsesBlock_token2;
   aux_sym_ppUsesBlock_token3]; ACTIONS 1054 [sym_kAdd; sym_kSub]; ACTIONS 1049 [sym_kAt;
   sym_kTrue; sym_kFalse]; ACTIONS 3 [sym__space]; ACTIONS 5 [sym_ppDirective];
   ACTIONS 3 [sym_comment]; ACTIONS 1049 [sym_ppFragmentExpr; sym__literalStringMultiline;
   sym_identifier]; ACTIONS 1059 [sym_kDefault; sym_kNodefault]; ACTIONS 1062 [sym_kDispId];
   ACTIONS 1049 [sym_kGeneric; sym_kSpecialize; sym_kOperator]; ACTIONS 1065 [sym_kPublic];
   ACTIONS 1059 [sym_kStatic; sym_kVirtual; sym_kAbstract; sym_kDynamic; sym_kOverride;
   sym_kOverload; sym_kReintroduce; sym_kStdcall; sym_kCdecl; sym_kCppdecl; sym_kPascal;
   sym_kRegister; sym_kMwpascal]; ACTIONS 1068 [sym_kMessage]; ACTIONS 1071 [sym_kDeprecated];
   ACTIONS 1059 [sym_kExperimental; sym_kPlatform; sym_kUnimplemented; sym_kCvar];
   ACTIONS 1074 [sym_kExport]; ACTIONS 1059 [sym_kFar; sym_kNear; sym_kSafecall; sym_kAssembler;
   sym_kNostackframe; sym_kInterrupt; sym_kNoreturn; sym_kIocheck; sym_kLocal; sym_kHardfloat;
   sym_kSoftfloat; sym_kMs_abi_default; sym_kMs_abi_cdecl; sym_kSaveregisters;
   sym_kSysv_abi_default; sym_kSysv_abi_cdecl; sym_kVectorcall; sym_kVarargs; sym_kWinapi];
   ACTIONS 1077 [sym_kAlias]; ACTIONS 1049 [sym_kAsm; sym_kBegin; sym_kCase; sym_kClass;
   sym_kConst; sym_kConstructor; sym_kDestructor; sym_kExports; sym_kFor; sym_kFunction;
   sym_kGoto; sym_kIf; sym_kInherited]; ACTIONS 1016 [sym_kInline]; ACTIONS 1049 [sym_kLabel;
   sym_kNil; sym_kNot; sym_kProcedure; sym_kProperty; sym_kRaise; sym_kRepeat;
   sym_kResourcestring; sym_kString; sym_kThreadvar; sym_kTry; sym_kType; sym_kUses; sym_kVar;
   sym_kWhile; sym_kWith]].

(** State 785. *)
Definition ts_parse_table_785 : parse_row :=
  [STATE 5604 [sym_if]; STATE 5649 [sym_ifElse; sym_while; sym_repeat; sym_for; sym_foreach;
   sym_try; sym_case; sym_block; sym_asm; sym_with; sym_raise; sym_statement; sym_goto;
   sym__statement]; STATE 11621 [sym_ifTr; sym_ifElseTr; sym_whileTr; sym_repeatTr; sym_forTr;
   sym_foreachTr; sym_tryTr; sym_caseTr]; STATE 11564 [sym_blockTr]; STATE 11621 [sym_asmTr;
   sym_withTr; sym_raiseTr; sym_statementTr; sym_gotoTr; sym__statementTr];
   STATE 11516 [sym_assignment]; STATE 11931 [sym_varAssignDef]; STATE 11516 [sym_varDef;
   sym_constDef]; STATE 5625 [sym_label]; STATE 7221 [sym__expr; sym_exprConditional];
   STATE 6884 [sym__ref; sym_lambda; sym_inherited; sym_exprDot; sym_exprDeref; sym_exprAs;
   sym_exprTpl; sym_exprSubscript; sym_exprCall]; STATE 7221 [sym_exprBinary; sym_exprUnary];
   STATE 6884 [sym_exprParens; sym_exprBrackets; sym__literal; sym_literalString];
   STATE 5959 [sym__literalString; sym_literalChar]; STATE 6884 [sym_literalNumber];
   STATE 6992 [sym__literalInt; sym__literalFloat];
   STATE 5625 [aux_sym_labeledStatement_repeat1]; STATE 5959 [aux_sym_literalString_repeat1];
   ACTIONS 6061 [anon_sym_SEMI]; ACTIONS 3196 [anon_sym_LBRACK]; ACTIONS 3198 [anon_sym_LPAREN];
   ACTIONS 3200 [aux_sym__literalString_token1]; ACTIONS 3202 [anon_sym_POUND];
   ACTIONS 3204 [aux_sym__literalInt_token1]; ACTIONS 3206 [aux_sym__literalInt_token2;
   aux_sym__literalInt_token3]; ACTIONS 3204 [aux_sym__literalFloat_token1];
   ACTIONS 3208 [sym_kAdd; sym_kSub]; ACTIONS 3210 [sym_kAt]; ACTIONS 3212 [sym_kTrue;
   sym_kFalse]; ACTIONS 3214 [sym_labelNumber]; ACTIONS 3 [sym__space];
   ACTIONS 5 [sym_ppDirective]; ACTIONS 3 [sym_comment]; ACTIONS 3212 [sym_ppFragmentExpr];
   ACTIONS 3200 [sym__literalStringMultiline]; ACTIONS 3216 [sym_identifier];
   ACTIONS 3218 [sym_kSpecialize]; ACTIONS 3308 [sym_kAsm]; ACTIONS 3310 [sym_kBegin];
   ACTIONS 3312 [sym_kCase]; ACTIONS 3226 [sym_kConst]; ACTIONS 4439 [sym_kElse; sym_kEnd;
   sym_kFinalization]; ACTIONS 3314 [sym_kFor]; ACTIONS 3234 [sym_kFunction];
   ACTIONS 3316 [sym_kGoto]; ACTIONS 3318 [sym_kIf]; ACTIONS 4439 [sym_kImplementation];
   ACTIONS 3240 [sym_kInherited]; ACTIONS 4439 [sym_kInitialization; sym_kInterface];
   ACTIONS 3212 [sym_kNil]; ACTIONS 3210 [sym_kNot]; ACTIONS 3234 [sym_kProcedure];
   ACTIONS 3320 [sym_kRaise]; ACTIONS 3322 [sym_kRepeat]; ACTIONS 3246 [sym_kString];
   ACTIONS 3324 [sym_kTry]; ACTIONS 3250 [sym_kVar]; ACTIONS 3326 [sym_kWhile];
   ACTIONS 3328 [sym_kWith]].

(** State 786. *)
Definition ts_parse_table_786 : parse_row :=
  [STATE 2921 [sym__ppIf]; STATE 1214 [sym__procAttributeNoExt];
   STATE 1215 [sym__procAttributesPp]; STATE 15691 [sym_procAttribute];
   STATE 797 [aux_sym__declProc_repeat1]; ACTIONS 1080 [anon_sym_SEMI; anon_sym_COMMA];
   ACTIONS 6063 [anon_sym_LBRACK]; ACTIONS 1085 [anon_sym_LPAREN];
   ACTIONS 1080 [aux_sym__literalString_token1; anon_sym_POUND];
   ACTIONS 1085 [aux_sym__literalInt_token1]; ACTIONS 1080 [aux_sym__literalInt_token2;
   aux_sym__literalInt_token3]; ACTIONS 1085 [aux_sym__literalFloat_token1];
   ACTIONS 1087 [aux_sym_ppUsesBlock_token1]; ACTIONS 1080 [aux_sym_ppUsesBlock_token2;
   aux_sym_ppUsesBlock_token3]; ACTIONS 1085 [sym_kAdd; sym_kSub]; ACTIONS 1080 [sym_kAt;
   sym_kTrue; sym_kFalse]; ACTIONS 3 [sym__space]; ACTIONS 5 [sym_ppDirective];
   ACTIONS 3 [sym_comment]; ACTIONS 1080 [sym_ppFragmentExpr; sym__literalStringMultiline;
   sym_identifier]; ACTIONS 1090 [sym_kDefault; sym_kNodefault]; ACTIONS 1093 [sym_kDispId];
   ACTIONS 1080 [sym_kGeneric; sym_kSpecialize; sym_kOperator]; ACTIONS 1096 [sym_kPublic];
   ACTIONS 1090 [sym_kStatic; sym_kVirtual; sym_kAbstract; sym_kDynamic; sym_kOverride;
   sym_kOverload; sym_kReintroduce; sym_kStdcall; sym_kCdecl; sym_kCppdecl; sym_kPascal;
   sym_kRegister; sym_kMwpascal]; ACTIONS 1099 [sym_kMessage]; ACTIONS 1102 [sym_kDeprecated];
   ACTIONS 1090 [sym_kExperimental; sym_kPlatform; sym_kUnimplemented; sym_kCvar];
   ACTIONS 1105 [sym_kExport]; ACTIONS 1090 [sym_kFar; sym_kNear; sym_kSafecall; sym_kAssembler;
   sym_kNostackframe; sym_kInterrupt; sym_kNoreturn; sym_kIocheck; sym_kLocal; sym_kHardfloat;
   sym_kSoftfloat; sym_kMs_abi_default; sym_kMs_abi_cdecl; sym_kSaveregisters;
   sym_kSysv_abi_default; sym_kSysv_abi_cdecl; sym_kVectorcall; sym_kVarargs; sym_kWinapi];
   ACTIONS 1108 [sym_kAlias]; ACTIONS 1080 [sym_kAsm; sym_kBegin; sym_kCase; sym_kClass;
   sym_kConst; sym_kConstructor; sym_kDestructor; sym_kExports; sym_kFor; sym_kFunction;
   sym_kGoto; sym_kIf; sym_kInherited]; ACTIONS 1016 [sym_kInline]; ACTIONS 1080 [sym_kLabel;
   sym_kNil; sym_kNot; sym_kProcedure; sym_kProperty; sym_kRaise; sym_kRepeat;
   sym_kResourcestring; sym_kString; sym_kThreadvar; sym_kTry; sym_kType; sym_kUses; sym_kVar;
   sym_kWhile; sym_kWith]].

(** State 787. *)
Definition ts_parse_table_787 : parse_row :=
  [STATE 17 [sym__ppIf]; STATE 742 [sym_ppBlock; sym_declConst];
   STATE 15416 [sym_rttiAttributes]; STATE 742 [aux_sym_declConsts_repeat1];
   STATE 12776 [aux_sym_rttiAttributes_repeat2]; ACTIONS 4621 [anon_sym_SEMI; anon_sym_COMMA];
   ACTIONS 4623 [anon_sym_LBRACK]; ACTIONS 4626 [anon_sym_LPAREN];
   ACTIONS 4621 [aux_sym__literalString_token1; anon_sym_POUND];
   ACTIONS 4626 [aux_sym__literalInt_token1]; ACTIONS 4621 [aux_sym__literalInt_token2;
   aux_sym__literalInt_token3]; ACTIONS 4626 [aux_sym__literalFloat_token1];
   ACTIONS 4628 [aux_sym_ppUsesBlock_token1]; ACTIONS 4621 [aux_sym_ppUsesBlock_token2;
   aux_sym_ppUsesBlock_token3]; ACTIONS 4626 [sym_kAdd; sym_kSub]; ACTIONS 4621 [sym_kAt;
   sym_kTrue; sym_kFalse]; ACTIONS 3 [sym__space]; ACTIONS 5 [sym_ppDirective];
   ACTIONS 3 [sym_comment]; ACTIONS 4621 [sym_ppFragmentExpr; sym__literalStringMultiline];
   ACTIONS 6066 [sym_identifier]; ACTIONS 4621 [sym_kDefault; sym_kNodefault; sym_kDispId;
   sym_kGeneric; sym_kSpecialize; sym_kOperator; sym_kPublic; sym_kStatic; sym_kVirtual;
   sym_kAbstract; sym_kDynamic; sym_kOverride; sym_kOverload; sym_kReintroduce; sym_kStdcall;
   sym_kCdecl; sym_kCppdecl; sym_kPascal; sym_kRegister; sym_kMwpascal; sym_kMessage;
   sym_kDeprecated; sym_kExperimental; sym_kPlatform; sym_kUnimplemented; sym_kCvar; sym_kExport;
   sym_kFar; sym_kNear; sym_kSafecall; sym_kAssembler; sym_kNostackframe; sym_kInterrupt;
   sym_kNoreturn; sym_kIocheck; sym_kLocal; sym_kHardfloat; sym_kSoftfloat; sym_kMs_abi_default;
   sym_kMs_abi_cdecl; sym_kSaveregisters; sym_kSysv_abi_default; sym_kSysv_abi_cdecl;
   sym_kVectorcall; sym_kVarargs; sym_kWinapi; sym_kAlias; sym_kAsm; sym_kBegin; sym_kCase;
   sym_kClass; sym_kConst; sym_kConstructor; sym_kDestructor; sym_kExports; sym_kFor;
   sym_kFunction; sym_kGoto; sym_kIf; sym_kInherited; sym_kLabel; sym_kNil; sym_kNot;
   sym_kProcedure; sym_kProperty; sym_kRaise; sym_kRepeat; sym_kResourcestring; sym_kString;
   sym_kThreadvar; sym_kTry; sym_kType; sym_kUses; sym_kVar; sym_kWhile; sym_kWith]].

(** State 788. *)
Definition ts_parse_table_788 : parse_row :=
  [STATE 2921 [sym__ppIf]; STATE 1214 [sym__procAttributeNoExt];
   STATE 1215 [sym__procAttributesPp]; STATE 15691 [sym_procAttribute];
   STATE 777 [aux_sym__declProc_repeat1]; ACTIONS 6069 [anon_sym_SEMI; anon_sym_COMMA];
   ACTIONS 6071 [anon_sym_LBRACK]; ACTIONS 6074 [anon_sym_LPAREN];
   ACTIONS 6069 [aux_sym__literalString_token1; anon_sym_POUND];
   ACTIONS 6074 [aux_sym__literalInt_token1]; ACTIONS 6069 [aux_sym__literalInt_token2;
   aux_sym__literalInt_token3]; ACTIONS 6074 [aux_sym__literalFloat_token1];
   ACTIONS 6076 [aux_sym_ppUsesBlock_token1]; ACTIONS 6069 [aux_sym_ppUsesBlock_token2;
   aux_sym_ppUsesBlock_token3]; ACTIONS 6074 [sym_kAdd; sym_kSub]; ACTIONS 6069 [sym_kAt;
   sym_kTrue; sym_kFalse]; ACTIONS 3 [sym__space]; ACTIONS 5 [sym_ppDirective];
   ACTIONS 3 [sym_comment]; ACTIONS 6069 [sym_ppFragmentExpr; sym__literalStringMultiline;
   sym_identifier]; ACTIONS 6079 [sym_kDefault; sym_kNodefault]; ACTIONS 6082 [sym_kDispId];
   ACTIONS 6069 [sym_kGeneric; sym_kSpecialize; sym_kOperator]; ACTIONS 6085 [sym_kPublic];
   ACTIONS 6079 [sym_kStatic; sym_kVirtual; sym_kAbstract; sym_kDynamic; sym_kOverride;
   sym_kOverload; sym_kReintroduce; sym_kStdcall; sym_kCdecl; sym_kCppdecl; sym_kPascal;
   sym_kRegister; sym_kMwpascal]; ACTIONS 6088 [sym_kMessage]; ACTIONS 6091 [sym_kDeprecated];
   ACTIONS 6079 [sym_kExperimental; sym_kPlatform; sym_kUnimplemented; sym_kCvar];
   ACTIONS 6094 [sym_kExport]; ACTIONS 6079 [sym_kFar; sym_kNear; sym_kSafecall; sym_kAssembler;
   sym_kNostackframe; sym_kInterrupt; sym_kNoreturn; sym_kIocheck; sym_kLocal; sym_kHardfloat;
   sym_kSoftfloat; sym_kMs_abi_default; sym_kMs_abi_cdecl; sym_kSaveregisters;
   sym_kSysv_abi_default; sym_kSysv_abi_cdecl; sym_kVectorcall; sym_kVarargs; sym_kWinapi];
   ACTIONS 6097 [sym_kAlias]; ACTIONS 6069 [sym_kAsm; sym_kBegin; sym_kCase; sym_kClass;
   sym_kConst; sym_kConstructor; sym_kDestructor; sym_kExports; sym_kFor; sym_kFunction;
   sym_kGoto; sym_kIf; sym_kInherited]; ACTIONS 1016 [sym_kInline]; ACTIONS 6069 [sym_kLabel;
   sym_kNil; sym_kNot; sym_kProcedure; sym_kProperty; sym_kRaise; sym_kRepeat;
   sym_kResourcestring; sym_kString; sym_kThreadvar; sym_kTry; sym_kType; sym_kUses; sym_kVar;
   sym_kWhile; sym_kWith]].

(** State 789. *)
Definition ts_parse_table_789 : parse_row :=
  [STATE 2921 [sym__ppIf]; STATE 1214 [sym__procAttributeNoExt];
   STATE 1215 [sym__procAttributesPp]; STATE 15691 [sym_procAttribute];
   STATE 777 [aux_sym__declProc_repeat1]; ACTIONS 1111 [anon_sym_SEMI; anon_sym_COMMA];
   ACTIONS 6100 [anon_sym_LBRACK]; ACTIONS 1116 [anon_sym_LPAREN];
   ACTIONS 1111 [aux_sym__literalString_token1; anon_sym_POUND];
   ACTIONS 1116 [aux_sym__literalInt_token1]; ACTIONS 1111 [aux_sym__literalInt_token2;
   aux_sym__literalInt_token3]; ACTIONS 1116 [aux_sym__literalFloat_token1];
   ACTIONS 1118 [aux_sym_ppUsesBlock_token1]; ACTIONS 1111 [aux_sym_ppUsesBlock_token2;
   aux_sym_ppUsesBlock_token3]; ACTIONS 1116 [sym_kAdd; sym_kSub]; ACTIONS 1111 [sym_kAt;
   sym_kTrue; sym_kFalse]; ACTIONS 3 [sym__space]; ACTIONS 5 [sym_ppDirective];
   ACTIONS 3 [sym_comment]; ACTIONS 1111 [sym_ppFragmentExpr; sym__literalStringMultiline;
   sym_identifier]; ACTIONS 1121 [sym_kDefault; sym_kNodefault]; ACTIONS 1124 [sym_kDispId];
   ACTIONS 1111 [sym_kGeneric; sym_kSpecialize; sym_kOperator]; ACTIONS 1127 [sym_kPublic];
   ACTIONS 1121 [sym_kStatic; sym_kVirtual; sym_kAbstract; sym_kDynamic; sym_kOverride;
   sym_kOverload; sym_kReintroduce; sym_kStdcall; sym_kCdecl; sym_kCppdecl; sym_kPascal;
   sym_kRegister; sym_kMwpascal]; ACTIONS 1130 [sym_kMessage]; ACTIONS 1133 [sym_kDeprecated];
   ACTIONS 1121 [sym_kExperimental; sym_kPlatform; sym_kUnimplemented; sym_kCvar];
   ACTIONS 1136 [sym_kExport]; ACTIONS 1121 [sym_kFar; sym_kNear; sym_kSafecall; sym_kAssembler;
   sym_kNostackframe; sym_kInterrupt; sym_kNoreturn; sym_kIocheck; sym_kLocal; sym_kHardfloat;
   sym_kSoftfloat; sym_kMs_abi_default; sym_kMs_abi_cdecl; sym_kSaveregisters;
   sym_kSysv_abi_default; sym_kSysv_abi_cdecl; sym_kVectorcall; sym_kVarargs; sym_kWinapi];
   ACTIONS 1139 [sym_kAlias]; ACTIONS 1111 [sym_kAsm; sym_kBegin; sym_kCase; sym_kClass;
   sym_kConst; sym_kConstructor; sym_kDestructor; sym_kExports; sym_kFor; sym_kFunction;
   sym_kGoto; sym_kIf; sym_kInherited]; ACTIONS 1016 [sym_kInline]; ACTIONS 1111 [sym_kLabel;
   sym_kNil; sym_kNot; sym_kProcedure; sym_kProperty; sym_kRaise; sym_kRepeat;
   sym_kResourcestring; sym_kString; sym_kThreadvar; sym_kTry; sym_kType; sym_kUses; sym_kVar;
   sym_kWhile; sym_kWith]].

(** State 790. *)
Definition ts_parse_table_790 : parse_row :=
  [STATE 2921 [sym__ppIf]; STATE 1214 [sym__procAttributeNoExt];
   STATE 1215 [sym__procAttributesPp]; STATE 15691 [sym_procAttribute];
   STATE 777 [aux_sym__declProc_repeat1]; ACTIONS 6103 [anon_sym_SEMI; anon_sym_COMMA];
   ACTIONS 6105 [anon_sym_LBRACK]; ACTIONS 6108 [anon_sym_LPAREN];
   ACTIONS 6103 [aux_sym__literalString_token1; anon_sym_POUND];
   ACTIONS 6108 [aux_sym__literalInt_token1]; ACTIONS 6103 [aux_sym__literalInt_token2;
   aux_sym__literalInt_token3]; ACTIONS 6108 [aux_sym__literalFloat_token1];
   ACTIONS 6110 [aux_sym_ppUsesBlock_token1]; ACTIONS 6103 [aux_sym_ppUsesBlock_token2;
   aux_sym_ppUsesBlock_token3]; ACTIONS 6108 [sym_kAdd; sym_kSub]; ACTIONS 6103 [sym_kAt;
   sym_kTrue; sym_kFalse]; ACTIONS 3 [sym__space]; ACTIONS 5 [sym_ppDirective];
   ACTIONS 3 [sym_comment]; ACTIONS 6103 [sym_ppFragmentExpr; sym__literalStringMultiline;
   sym_identifier]; ACTIONS 6113 [sym_kDefault; sym_kNodefault]; ACTIONS 6116 [sym_kDispId];
   ACTIONS 6103 [sym_kGeneric; sym_kSpecialize; sym_kOperator]; ACTIONS 6119 [sym_kPublic];
   ACTIONS 6113 [sym_kStatic; sym_kVirtual; sym_kAbstract; sym_kDynamic; sym_kOverride;
   sym_kOverload; sym_kReintroduce; sym_kStdcall; sym_kCdecl; sym_kCppdecl; sym_kPascal;
   sym_kRegister; sym_kMwpascal]; ACTIONS 6122 [sym_kMessage]; ACTIONS 6125 [sym_kDeprecated];
   ACTIONS 6113 [sym_kExperimental; sym_kPlatform; sym_kUnimplemented; sym_kCvar];
   ACTIONS 6128 [sym_kExport]; ACTIONS 6113 [sym_kFar; sym_kNear; sym_kSafecall; sym_kAssembler;
   sym_kNostackframe; sym_kInterrupt; sym_kNoreturn; sym_kIocheck; sym_kLocal; sym_kHardfloat;
   sym_kSoftfloat; sym_kMs_abi_default; sym_kMs_abi_cdecl; sym_kSaveregisters;
   sym_kSysv_abi_default; sym_kSysv_abi_cdecl; sym_kVectorcall; sym_kVarargs; sym_kWinapi];
   ACTIONS 6131 [sym_kAlias]; ACTIONS 6103 [sym_kAsm; sym_kBegin; sym_kCase; sym_kClass;
   sym_kConst; sym_kConstructor; sym_kDestructor; sym_kExports; sym_kFor; sym_kFunction;
   sym_kGoto; sym_kIf; sym_kInherited]; ACTIONS 1016 [sym_kInline]; ACTIONS 6103 [sym_kLabel;
   sym_kNil; sym_kNot; sym_kProcedure; sym_kProperty; sym_kRaise; sym_kRepeat;
   sym_kResourcestring; sym_kString; sym_kThreadvar; sym_kTry; sym_kType; sym_kUses; sym_kVar;
   sym_kWhile; sym_kWith]].

(** State 791. *)
Definition ts_parse_table_791 : parse_row :=
  [STATE 2921 [sym__ppIf]; STATE 1214 [sym__procAttributeNoExt];
   STATE 1215 [sym__procAttributesPp]; STATE 15691 [sym_procAttribute];
   STATE 777 [aux_sym__declProc_repeat1]; ACTIONS 6134 [anon_sym_SEMI; anon_sym_COMMA];
   ACTIONS 6136 [anon_sym_LBRACK]; ACTIONS 6139 [anon_sym_LPAREN];
   ACTIONS 6134 [aux_sym__literalString_token1; anon_sym_POUND];
   ACTIONS 6139 [aux_sym__literalInt_token1]; ACTIONS 6134 [aux_sym__literalInt_token2;
   aux_sym__literalInt_token3]; ACTIONS 6139 [aux_sym__literalFloat_token1];
   ACTIONS 6141 [aux_sym_ppUsesBlock_token1]; ACTIONS 6134 [aux_sym_ppUsesBlock_token2;
   aux_sym_ppUsesBlock_token3]; ACTIONS 6139 [sym_kAdd; sym_kSub]; ACTIONS 6134 [sym_kAt;
   sym_kTrue; sym_kFalse]; ACTIONS 3 [sym__space]; ACTIONS 5 [sym_ppDirective];
   ACTIONS 3 [sym_comment]; ACTIONS 6134 [sym_ppFragmentExpr; sym__literalStringMultiline;
   sym_identifier]; ACTIONS 6144 [sym_kDefault; sym_kNodefault]; ACTIONS 6147 [sym_kDispId];
   ACTIONS 6134 [sym_kGeneric; sym_kSpecialize; sym_kOperator]; ACTIONS 6150 [sym_kPublic];
   ACTIONS 6144 [sym_kStatic; sym_kVirtual; sym_kAbstract; sym_kDynamic; sym_kOverride;
   sym_kOverload; sym_kReintroduce; sym_kStdcall; sym_kCdecl; sym_kCppdecl; sym_kPascal;
   sym_kRegister; sym_kMwpascal]; ACTIONS 6153 [sym_kMessage]; ACTIONS 6156 [sym_kDeprecated];
   ACTIONS 6144 [sym_kExperimental; sym_kPlatform; sym_kUnimplemented; sym_kCvar];
   ACTIONS 6159 [sym_kExport]; ACTIONS 6144 [sym_kFar; sym_kNear; sym_kSafecall; sym_kAssembler;
   sym_kNostackframe; sym_kInterrupt; sym_kNoreturn; sym_kIocheck; sym_kLocal; sym_kHardfloat;
   sym_kSoftfloat; sym_kMs_abi_default; sym_kMs_abi_cdecl; sym_kSaveregisters;
   sym_kSysv_abi_default; sym_kSysv_abi_cdecl; sym_kVectorcall; sym_kVarargs; sym_kWinapi];
   ACTIONS 6162 [sym_kAlias]; ACTIONS 6134 [sym_kAsm; sym_kBegin; sym_kCase; sym_kClass;
   sym_kConst; sym_kConstructor; sym_kDestructor; sym_kExports; sym_kFor; sym_kFunction;
   sym_kGoto; sym_kIf; sym_kInherited]; ACTIONS 1016 [sym_kInline]; ACTIONS 6134 [sym_kLabel;
   sym_kNil; sym_kNot; sym_kProcedure; sym_kProperty; sym_kRaise; sym_kRepeat;
   sym_kResourcestring; sym_kString; sym_kThreadvar; sym_kTry; sym_kType; sym_kUses; sym_kVar;
   sym_kWhile; sym_kWith]].

(** State 792. *)
Definition ts_parse_table_792 : parse_row :=
  [STATE 2921 [sym__ppIf]; STATE 1214 [sym__procAttributeNoExt];
   STATE 1215 [sym__procAttributesPp]; STATE 15691 [sym_procAttribute];
   STATE 801 [aux_sym__declProc_repeat1]; ACTIONS 6165 [anon_sym_SEMI; anon_sym_COMMA];
   ACTIONS 6167 [anon_sym_LBRACK]; ACTIONS 6170 [anon_sym_LPAREN];
   ACTIONS 6165 [aux_sym__literalString_token1; anon_sym_POUND];
   ACTIONS 6170 [aux_sym__literalInt_token1]; ACTIONS 6165 [aux_sym__literalInt_token2;
   aux_sym__literalInt_token3]; ACTIONS 6170 [aux_sym__literalFloat_token1];
   ACTIONS 6172 [aux_sym_ppUsesBlock_token1]; ACTIONS 6165 [aux_sym_ppUsesBlock_token2;
   aux_sym_ppUsesBlock_token3]; ACTIONS 6170 [sym_kAdd; sym_kSub]; ACTIONS 6165 [sym_kAt;
   sym_kTrue; sym_kFalse]; ACTIONS 3 [sym__space]; ACTIONS 5 [sym_ppDirective];
   ACTIONS 3 [sym_comment]; ACTIONS 6165 [sym_ppFragmentExpr; sym__literalStringMultiline;
   sym_identifier]; ACTIONS 6175 [sym_kDefault; sym_kNodefault]; ACTIONS 6178 [sym_kDispId];
   ACTIONS 6165 [sym_kGeneric; sym_kSpecialize; sym_kOperator]; ACTIONS 6181 [sym_kPublic];
   ACTIONS 6175 [sym_kStatic; sym_kVirtual; sym_kAbstract; sym_kDynamic; sym_kOverride;
   sym_kOverload; sym_kReintroduce; sym_kStdcall; sym_kCdecl; sym_kCppdecl; sym_kPascal;
   sym_kRegister; sym_kMwpascal]; ACTIONS 6184 [sym_kMessage]; ACTIONS 6187 [sym_kDeprecated];
   ACTIONS 6175 [sym_kExperimental; sym_kPlatform; sym_kUnimplemented; sym_kCvar];
   ACTIONS 6190 [sym_kExport]; ACTIONS 6175 [sym_kFar; sym_kNear; sym_kSafecall; sym_kAssembler;
   sym_kNostackframe; sym_kInterrupt; sym_kNoreturn; sym_kIocheck; sym_kLocal; sym_kHardfloat;
   sym_kSoftfloat; sym_kMs_abi_default; sym_kMs_abi_cdecl; sym_kSaveregisters;
   sym_kSysv_abi_default; sym_kSysv_abi_cdecl; sym_kVectorcall; sym_kVarargs; sym_kWinapi];
   ACTIONS 6193 [sym_kAlias]; ACTIONS 6165 [sym_kAsm; sym_kBegin; sym_kCase; sym_kClass;
   sym_kConst; sym_kConstructor; sym_kDestructor; sym_kExports; sym_kFor; sym_kFunction;
   sym_kGoto; sym_kIf; sym_kInherited]; ACTIONS 1016 [sym_kInline]; ACTIONS 6165 [sym_kLabel;
   sym_kNil; sym_kNot; sym_kProcedure; sym_kProperty; sym_kRaise; sym_kRepeat;
   sym_kResourcestring; sym_kString; sym_kThreadvar; sym_kTry; sym_kType; sym_kUses; sym_kVar;
   sym_kWhile; sym_kWith]].

(** State 793. *)
Definition ts_parse_table_793 : parse_row :=
  [STATE 17 [sym__ppIf]; STATE 793 [sym_ppBlock; sym_declConst];
   STATE 15416 [sym_rttiAttributes]; STATE 793 [aux_sym_declConsts_repeat1];
   STATE 12776 [aux_sym_rttiAttributes_repeat2]; ACTIONS 6196 [anon_sym_SEMI; anon_sym_COMMA];
   ACTIONS 6198 [anon_sym_LBRACK]; ACTIONS 6201 [anon_sym_LPAREN];
   ACTIONS 6196 [aux_sym__literalString_token1; anon_sym_POUND];
   ACTIONS 6201 [aux_sym__literalInt_token1]; ACTIONS 6196 [aux_sym__literalInt_token2;
   aux_sym__literalInt_token3]; ACTIONS 6201 [aux_sym__literalFloat_token1];
   ACTIONS 6203 [aux_sym_ppUsesBlock_token1]; ACTIONS 6196 [aux_sym_ppUsesBlock_token2;
   aux_sym_ppUsesBlock_token3]; ACTIONS 6201 [sym_kAdd; sym_kSub]; ACTIONS 6196 [sym_kAt;
   sym_kTrue; sym_kFalse]; ACTIONS 3 [sym__space]; ACTIONS 5 [sym_ppDirective];
   ACTIONS 3 [sym_comment]; ACTIONS 6196 [sym_ppFragmentExpr; sym__literalStringMultiline];
   ACTIONS 6206 [sym_identifier]; ACTIONS 6196 [sym_kDefault; sym_kNodefault; sym_kDispId;
   sym_kGeneric; sym_kSpecialize; sym_kOperator; sym_kPublic; sym_kStatic; sym_kVirtual;
   sym_kAbstract; sym_kDynamic; sym_kOverride; sym_kOverload; sym_kReintroduce; sym_kStdcall;
   sym_kCdecl; sym_kCppdecl; sym_kPascal; sym_kRegister; sym_kMwpascal; sym_kMessage;
   sym_kDeprecated; sym_kExperimental; sym_kPlatform; sym_kUnimplemented; sym_kCvar; sym_kExport;
   sym_kFar; sym_kNear; sym_kSafecall; sym_kAssembler; sym_kNostackframe; sym_kInterrupt;
   sym_kNoreturn; sym_kIocheck; sym_kLocal; sym_kHardfloat; sym_kSoftfloat; sym_kMs_abi_default;
   sym_kMs_abi_cdecl; sym_kSaveregisters; sym_kSysv_abi_default; sym_kSysv_abi_cdecl;
   sym_kVectorcall; sym_kVarargs; sym_kWinapi; sym_kAlias; sym_kAsm; sym_kBegin; sym_kCase;
   sym_kClass; sym_kConst; sym_kConstructor; sym_kDestructor; sym_kExports; sym_kFor;
   sym_kFunction; sym_kGoto; sym_kIf; sym_kInherited; sym_kLabel; sym_kNil; sym_kNot;
   sym_kProcedure; sym_kProperty; sym_kRaise; sym_kRepeat; sym_kResourcestring; sym_kString;
   sym_kThreadvar; sym_kTry; sym_kType; sym_kUses; sym_kVar; sym_kWhile; sym_kWith]].

(** State 794. *)
Definition ts_parse_table_794 : parse_row :=
  [STATE 2921 [sym__ppIf]; STATE 1214 [sym__procAttributeNoExt];
   STATE 1215 [sym__procAttributesPp]; STATE 15691 [sym_procAttribute];
   STATE 777 [aux_sym__declProc_repeat1]; ACTIONS 6209 [anon_sym_SEMI; anon_sym_COMMA];
   ACTIONS 6211 [anon_sym_LBRACK]; ACTIONS 6214 [anon_sym_LPAREN];
   ACTIONS 6209 [aux_sym__literalString_token1; anon_sym_POUND];
   ACTIONS 6214 [aux_sym__literalInt_token1]; ACTIONS 6209 [aux_sym__literalInt_token2;
   aux_sym__literalInt_token3]; ACTIONS 6214 [aux_sym__literalFloat_token1];
   ACTIONS 6216 [aux_sym_ppUsesBlock_token1]; ACTIONS 6209 [aux_sym_ppUsesBlock_token2;
   aux_sym_ppUsesBlock_token3]; ACTIONS 6214 [sym_kAdd; sym_kSub]; ACTIONS 6209 [sym_kAt;
   sym_kTrue; sym_kFalse]; ACTIONS 3 [sym__space]; ACTIONS 5 [sym_ppDirective];
   ACTIONS 3 [sym_comment]; ACTIONS 6209 [sym_ppFragmentExpr; sym__literalStringMultiline;
   sym_identifier]; ACTIONS 6219 [sym_kDefault; sym_kNodefault]; ACTIONS 6222 [sym_kDispId];
   ACTIONS 6209 [sym_kGeneric; sym_kSpecialize; sym_kOperator]; ACTIONS 6225 [sym_kPublic];
   ACTIONS 6219 [sym_kStatic; sym_kVirtual; sym_kAbstract; sym_kDynamic; sym_kOverride;
   sym_kOverload; sym_kReintroduce; sym_kStdcall; sym_kCdecl; sym_kCppdecl; sym_kPascal;
   sym_kRegister; sym_kMwpascal]; ACTIONS 6228 [sym_kMessage]; ACTIONS 6231 [sym_kDeprecated];
   ACTIONS 6219 [sym_kExperimental; sym_kPlatform; sym_kUnimplemented; sym_kCvar];
   ACTIONS 6234 [sym_kExport]; ACTIONS 6219 [sym_kFar; sym_kNear; sym_kSafecall; sym_kAssembler;
   sym_kNostackframe; sym_kInterrupt; sym_kNoreturn; sym_kIocheck; sym_kLocal; sym_kHardfloat;
   sym_kSoftfloat; sym_kMs_abi_default; sym_kMs_abi_cdecl; sym_kSaveregisters;
   sym_kSysv_abi_default; sym_kSysv_abi_cdecl; sym_kVectorcall; sym_kVarargs; sym_kWinapi];
   ACTIONS 6237 [sym_kAlias]; ACTIONS 6209 [sym_kAsm; sym_kBegin; sym_kCase; sym_kClass;
   sym_kConst; sym_kConstructor; sym_kDestructor; sym_kExports; sym_kFor; sym_kFunction;
   sym_kGoto; sym_kIf; sym_kInherited]; ACTIONS 1016 [sym_kInline]; ACTIONS 6209 [sym_kLabel;
   sym_kNil; sym_kNot; sym_kProcedure; sym_kProperty; sym_kRaise; sym_kRepeat;
   sym_kResourcestring; sym_kString; sym_kThreadvar; sym_kTry; sym_kType; sym_kUses; sym_kVar;
   sym_kWhile; sym_kWith]].

(** State 795. *)
Definition ts_parse_table_795 : parse_row :=
  [STATE 2921 [sym__ppIf]; STATE 1214 [sym__procAttributeNoExt];
   STATE 1215 [sym__procAttributesPp]; STATE 15691 [sym_procAttribute];
   STATE 800 [aux_sym__declProc_repeat1]; ACTIONS 1334 [anon_sym_SEMI; anon_sym_COMMA];
   ACTIONS 6240 [anon_sym_LBRACK]; ACTIONS 1339 [anon_sym_LPAREN];
   ACTIONS 1334 [aux_sym__literalString_token1; anon_sym_POUND];
   ACTIONS 1339 [aux_sym__literalInt_token1]; ACTIONS 1334 [aux_sym__literalInt_token2;
   aux_sym__literalInt_token3]; ACTIONS 1339 [aux_sym__literalFloat_token1];
   ACTIONS 1341 [aux_sym_ppUsesBlock_token1]; ACTIONS 1334 [aux_sym_ppUsesBlock_token2;
   aux_sym_ppUsesBlock_token3]; ACTIONS 1339 [sym_kAdd; sym_kSub]; ACTIONS 1334 [sym_kAt;
   sym_kTrue; sym_kFalse]; ACTIONS 3 [sym__space]; ACTIONS 5 [sym_ppDirective];
   ACTIONS 3 [sym_comment]; ACTIONS 1334 [sym_ppFragmentExpr; sym__literalStringMultiline;
   sym_identifier]; ACTIONS 1344 [sym_kDefault; sym_kNodefault]; ACTIONS 1347 [sym_kDispId];
   ACTIONS 1334 [sym_kGeneric; sym_kSpecialize; sym_kOperator]; ACTIONS 1350 [sym_kPublic];
   ACTIONS 1344 [sym_kStatic; sym_kVirtual; sym_kAbstract; sym_kDynamic; sym_kOverride;
   sym_kOverload; sym_kReintroduce; sym_kStdcall; sym_kCdecl; sym_kCppdecl; sym_kPascal;
   sym_kRegister; sym_kMwpascal]; ACTIONS 1353 [sym_kMessage]; ACTIONS 1356 [sym_kDeprecated];
   ACTIONS 1344 [sym_kExperimental; sym_kPlatform; sym_kUnimplemented; sym_kCvar];
   ACTIONS 1359 [sym_kExport]; ACTIONS 1344 [sym_kFar; sym_kNear; sym_kSafecall; sym_kAssembler;
   sym_kNostackframe; sym_kInterrupt; sym_kNoreturn; sym_kIocheck; sym_kLocal; sym_kHardfloat;
   sym_kSoftfloat; sym_kMs_abi_default; sym_kMs_abi_cdecl; sym_kSaveregisters;
   sym_kSysv_abi_default; sym_kSysv_abi_cdecl; sym_kVectorcall; sym_kVarargs; sym_kWinapi];
   ACTIONS 1362 [sym_kAlias]; ACTIONS 1334 [sym_kAsm; sym_kBegin; sym_kCase; sym_kClass;
   sym_kConst; sym_kConstructor; sym_kDestructor; sym_kExports; sym_kFor; sym_kFunction;
   sym_kGoto; sym_kIf; sym_kInherited]; ACTIONS 1016 [sym_kInline]; ACTIONS 1334 [sym_kLabel;
   sym_kNil; sym_kNot; sym_kProcedure; sym_kProperty; sym_kRaise; sym_kRepeat;
   sym_kResourcestring; sym_kString; sym_kThreadvar; sym_kTry; sym_kType; sym_kUses; sym_kVar;
   sym_kWhile; sym_kWith]].

(** State 796. *)
Definition ts_parse_table_796 : parse_row :=
  [STATE 2921 [sym__ppIf]; STATE 1214 [sym__procAttributeNoExt];
   STATE 1215 [sym__procAttributesPp]; STATE 15691 [sym_procAttribute];
   STATE 811 [aux_sym__declProc_repeat1]; ACTIONS 1383 [anon_sym_SEMI; anon_sym_COMMA];
   ACTIONS 6243 [anon_sym_LBRACK]; ACTIONS 1388 [anon_sym_LPAREN];
   ACTIONS 1383 [aux_sym__literalString_token1; anon_sym_POUND];
   ACTIONS 1388 [aux_sym__literalInt_token1]; ACTIONS 1383 [aux_sym__literalInt_token2;
   aux_sym__literalInt_token3]; ACTIONS 1388 [aux_sym__literalFloat_token1];
   ACTIONS 1390 [aux_sym_ppUsesBlock_token1]; ACTIONS 1383 [aux_sym_ppUsesBlock_token2;
   aux_sym_ppUsesBlock_token3]; ACTIONS 1388 [sym_kAdd; sym_kSub]; ACTIONS 1383 [sym_kAt;
   sym_kTrue; sym_kFalse]; ACTIONS 3 [sym__space]; ACTIONS 5 [sym_ppDirective];
   ACTIONS 3 [sym_comment]; ACTIONS 1383 [sym_ppFragmentExpr; sym__literalStringMultiline;
   sym_identifier]; ACTIONS 1393 [sym_kDefault; sym_kNodefault]; ACTIONS 1396 [sym_kDispId];
   ACTIONS 1383 [sym_kGeneric; sym_kSpecialize; sym_kOperator]; ACTIONS 1399 [sym_kPublic];
   ACTIONS 1393 [sym_kStatic; sym_kVirtual; sym_kAbstract; sym_kDynamic; sym_kOverride;
   sym_kOverload; sym_kReintroduce; sym_kStdcall; sym_kCdecl; sym_kCppdecl; sym_kPascal;
   sym_kRegister; sym_kMwpascal]; ACTIONS 1402 [sym_kMessage]; ACTIONS 1405 [sym_kDeprecated];
   ACTIONS 1393 [sym_kExperimental; sym_kPlatform; sym_kUnimplemented; sym_kCvar];
   ACTIONS 1408 [sym_kExport]; ACTIONS 1393 [sym_kFar; sym_kNear; sym_kSafecall; sym_kAssembler;
   sym_kNostackframe; sym_kInterrupt; sym_kNoreturn; sym_kIocheck; sym_kLocal; sym_kHardfloat;
   sym_kSoftfloat; sym_kMs_abi_default; sym_kMs_abi_cdecl; sym_kSaveregisters;
   sym_kSysv_abi_default; sym_kSysv_abi_cdecl; sym_kVectorcall; sym_kVarargs; sym_kWinapi];
   ACTIONS 1411 [sym_kAlias]; ACTIONS 1383 [sym_kAsm; sym_kBegin; sym_kCase; sym_kClass;
   sym_kConst; sym_kConstructor; sym_kDestructor; sym_kExports; sym_kFor; sym_kFunction;
   sym_kGoto; sym_kIf; sym_kInherited]; ACTIONS 1016 [sym_kInline]; ACTIONS 1383 [sym_kLabel;
   sym_kNil; sym_kNot; sym_kProcedure; sym_kProperty; sym_kRaise; sym_kRepeat;
   sym_kResourcestring; sym_kString; sym_kThreadvar; sym_kTry; sym_kType; sym_kUses; sym_kVar;
   sym_kWhile; sym_kWith]].

(** State 797. *)
Definition ts_parse_table_797 : parse_row :=
  [STATE 2921 [sym__ppIf]; STATE 1214 [sym__procAttributeNoExt];
   STATE 1215 [sym__procAttributesPp]; STATE 15691 [sym_procAttribute];
   STATE 777 [aux_sym__declProc_repeat1]; ACTIONS 1142 [anon_sym_SEMI; anon_sym_COMMA];
   ACTIONS 6246 [anon_sym_LBRACK]; ACTIONS 1147 [anon_sym_LPAREN];
   ACTIONS 1142 [aux_sym__literalString_token1; anon_sym_POUND];
   ACTIONS 1147 [aux_sym__literalInt_token1]; ACTIONS 1142 [aux_sym__literalInt_token2;
   aux_sym__literalInt_token3]; ACTIONS 1147 [aux_sym__literalFloat_token1];
   ACTIONS 1149 [aux_sym_ppUsesBlock_token1]; ACTIONS 1142 [aux_sym_ppUsesBlock_token2;
   aux_sym_ppUsesBlock_token3]; ACTIONS 1147 [sym_kAdd; sym_kSub]; ACTIONS 1142 [sym_kAt;
   sym_kTrue; sym_kFalse]; ACTIONS 3 [sym__space]; ACTIONS 5 [sym_ppDirective];
   ACTIONS 3 [sym_comment]; ACTIONS 1142 [sym_ppFragmentExpr; sym__literalStringMultiline;
   sym_identifier]; ACTIONS 1152 [sym_kDefault; sym_kNodefault]; ACTIONS 1155 [sym_kDispId];
   ACTIONS 1142 [sym_kGeneric; sym_kSpecialize; sym_kOperator]; ACTIONS 1158 [sym_kPublic];
   ACTIONS 1152 [sym_kStatic; sym_kVirtual; sym_kAbstract; sym_kDynamic; sym_kOverride;
   sym_kOverload; sym_kReintroduce; sym_kStdcall; sym_kCdecl; sym_kCppdecl; sym_kPascal;
   sym_kRegister; sym_kMwpascal]; ACTIONS 1161 [sym_kMessage]; ACTIONS 1164 [sym_kDeprecated];
   ACTIONS 1152 [sym_kExperimental; sym_kPlatform; sym_kUnimplemented; sym_kCvar];
   ACTIONS 1167 [sym_kExport]; ACTIONS 1152 [sym_kFar; sym_kNear; sym_kSafecall; sym_kAssembler;
   sym_kNostackframe; sym_kInterrupt; sym_kNoreturn; sym_kIocheck; sym_kLocal; sym_kHardfloat;
   sym_kSoftfloat; sym_kMs_abi_default; sym_kMs_abi_cdecl; sym_kSaveregisters;
   sym_kSysv_abi_default; sym_kSysv_abi_cdecl; sym_kVectorcall; sym_kVarargs; sym_kWinapi];
   ACTIONS 1170 [sym_kAlias]; ACTIONS 1142 [sym_kAsm; sym_kBegin; sym_kCase; sym_kClass;
   sym_kConst; sym_kConstructor; sym_kDestructor; sym_kExports; sym_kFor; sym_kFunction;
   sym_kGoto; sym_kIf; sym_kInherited]; ACTIONS 1016 [sym_kInline]; ACTIONS 1142 [sym_kLabel;
   sym_kNil; sym_kNot; sym_kProcedure; sym_kProperty; sym_kRaise; sym_kRepeat;
   sym_kResourcestring; sym_kString; sym_kThreadvar; sym_kTry; sym_kType; sym_kUses; sym_kVar;
   sym_kWhile; sym_kWith]].

(** State 798. *)
Definition ts_parse_table_798 : parse_row :=
  [STATE 2921 [sym__ppIf]; STATE 1214 [sym__procAttributeNoExt];
   STATE 1215 [sym__procAttributesPp]; STATE 15691 [sym_procAttribute];
   STATE 830 [aux_sym__declProc_repeat1]; ACTIONS 6249 [anon_sym_SEMI; anon_sym_COMMA];
   ACTIONS 6251 [anon_sym_LBRACK]; ACTIONS 6254 [anon_sym_LPAREN];
   ACTIONS 6249 [aux_sym__literalString_token1; anon_sym_POUND];
   ACTIONS 6254 [aux_sym__literalInt_token1]; ACTIONS 6249 [aux_sym__literalInt_token2;
   aux_sym__literalInt_token3]; ACTIONS 6254 [aux_sym__literalFloat_token1];
   ACTIONS 6256 [aux_sym_ppUsesBlock_token1]; ACTIONS 6249 [aux_sym_ppUsesBlock_token2;
   aux_sym_ppUsesBlock_token3]; ACTIONS 6254 [sym_kAdd; sym_kSub]; ACTIONS 6249 [sym_kAt;
   sym_kTrue; sym_kFalse]; ACTIONS 3 [sym__space]; ACTIONS 5 [sym_ppDirective];
   ACTIONS 3 [sym_comment]; ACTIONS 6249 [sym_ppFragmentExpr; sym__literalStringMultiline;
   sym_identifier]; ACTIONS 6259 [sym_kDefault; sym_kNodefault]; ACTIONS 6262 [sym_kDispId];
   ACTIONS 6249 [sym_kGeneric; sym_kSpecialize; sym_kOperator]; ACTIONS 6265 [sym_kPublic];
   ACTIONS 6259 [sym_kStatic; sym_kVirtual; sym_kAbstract; sym_kDynamic; sym_kOverride;
   sym_kOverload; sym_kReintroduce; sym_kStdcall; sym_kCdecl; sym_kCppdecl; sym_kPascal;
   sym_kRegister; sym_kMwpascal]; ACTIONS 6268 [sym_kMessage]; ACTIONS 6271 [sym_kDeprecated];
   ACTIONS 6259 [sym_kExperimental; sym_kPlatform; sym_kUnimplemented; sym_kCvar];
   ACTIONS 6274 [sym_kExport]; ACTIONS 6259 [sym_kFar; sym_kNear; sym_kSafecall; sym_kAssembler;
   sym_kNostackframe; sym_kInterrupt; sym_kNoreturn; sym_kIocheck; sym_kLocal; sym_kHardfloat;
   sym_kSoftfloat; sym_kMs_abi_default; sym_kMs_abi_cdecl; sym_kSaveregisters;
   sym_kSysv_abi_default; sym_kSysv_abi_cdecl; sym_kVectorcall; sym_kVarargs; sym_kWinapi];
   ACTIONS 6277 [sym_kAlias]; ACTIONS 6249 [sym_kAsm; sym_kBegin; sym_kCase; sym_kClass;
   sym_kConst; sym_kConstructor; sym_kDestructor; sym_kExports; sym_kFor; sym_kFunction;
   sym_kGoto; sym_kIf; sym_kInherited]; ACTIONS 1016 [sym_kInline]; ACTIONS 6249 [sym_kLabel;
   sym_kNil; sym_kNot; sym_kProcedure; sym_kProperty; sym_kRaise; sym_kRepeat;
   sym_kResourcestring; sym_kString; sym_kThreadvar; sym_kTry; sym_kType; sym_kUses; sym_kVar;
   sym_kWhile; sym_kWith]].

(** State 799. *)
Definition ts_parse_table_799 : parse_row :=
  [ACTIONS 6280 [anon_sym_SEMI; anon_sym_COMMA; anon_sym_LBRACK]; ACTIONS 6282 [anon_sym_LPAREN];
   ACTIONS 6280 [aux_sym__literalString_token1; anon_sym_POUND];
   ACTIONS 6282 [aux_sym__literalInt_token1]; ACTIONS 6280 [aux_sym__literalInt_token2;
   aux_sym__literalInt_token3]; ACTIONS 6282 [aux_sym__literalFloat_token1];
   ACTIONS 6280 [aux_sym_ppUsesBlock_token1; aux_sym_ppUsesBlock_token2;
   aux_sym_ppUsesBlock_token3]; ACTIONS 6282 [sym_kAdd; sym_kSub]; ACTIONS 6280 [sym_kAt;
   sym_kTrue; sym_kFalse]; ACTIONS 3 [sym__space]; ACTIONS 5 [sym_ppDirective];
   ACTIONS 3 [sym_comment]; ACTIONS 6280 [sym_ppFragmentExpr; sym__literalStringMultiline;
   sym_identifier; sym_kDefault; sym_kNodefault; sym_kDispId; sym_kGeneric; sym_kSpecialize;
   sym_kOperator; sym_kPublished; sym_kPublic; sym_kProtected; sym_kPrivate; sym_kStrict;
   sym_kRequired; sym_kOptional; sym_kStatic; sym_kVirtual; sym_kAbstract; sym_kDynamic;
   sym_kOverride; sym_kOverload; sym_kReintroduce; sym_kStdcall; sym_kCdecl; sym_kCppdecl;
   sym_kPascal; sym_kRegister; sym_kMwpascal; sym_kMessage; sym_kDeprecated; sym_kExperimental;
   sym_kPlatform; sym_kUnimplemented; sym_kCvar; sym_kExport; sym_kFar; sym_kNear; sym_kSafecall;
   sym_kAssembler; sym_kNostackframe; sym_kInterrupt; sym_kNoreturn; sym_kIocheck; sym_kLocal;
   sym_kHardfloat; sym_kSoftfloat; sym_kMs_abi_default; sym_kMs_abi_cdecl; sym_kSaveregisters;
   sym_kSysv_abi_default; sym_kSysv_abi_cdecl; sym_kVectorcall; sym_kVarargs; sym_kWinapi;
   sym_kAlias; sym_kAsm; sym_kBegin; sym_kCase; sym_kClass; sym_kConst; sym_kConstructor;
   sym_kDestructor; sym_kExports; sym_kFor; sym_kFunction; sym_kGoto; sym_kIf; sym_kInherited;
   sym_kLabel; sym_kNil; sym_kNot; sym_kProcedure; sym_kProperty; sym_kRaise; sym_kRepeat;
   sym_kResourcestring; sym_kString; sym_kThreadvar; sym_kTry; sym_kType; sym_kUses; sym_kVar;
   sym_kWhile; sym_kWith]].

(** State 800. *)
Definition ts_parse_table_800 : parse_row :=
  [STATE 2921 [sym__ppIf]; STATE 1214 [sym__procAttributeNoExt];
   STATE 1215 [sym__procAttributesPp]; STATE 15691 [sym_procAttribute];
   STATE 777 [aux_sym__declProc_repeat1]; ACTIONS 1432 [anon_sym_SEMI; anon_sym_COMMA];
   ACTIONS 6284 [anon_sym_LBRACK]; ACTIONS 1437 [anon_sym_LPAREN];
   ACTIONS 1432 [aux_sym__literalString_token1; anon_sym_POUND];
   ACTIONS 1437 [aux_sym__literalInt_token1]; ACTIONS 1432 [aux_sym__literalInt_token2;
   aux_sym__literalInt_token3]; ACTIONS 1437 [aux_sym__literalFloat_token1];
   ACTIONS 1439 [aux_sym_ppUsesBlock_token1]; ACTIONS 1432 [aux_sym_ppUsesBlock_token2;
   aux_sym_ppUsesBlock_token3]; ACTIONS 1437 [sym_kAdd; sym_kSub]; ACTIONS 1432 [sym_kAt;
   sym_kTrue; sym_kFalse]; ACTIONS 3 [sym__space]; ACTIONS 5 [sym_ppDirective];
   ACTIONS 3 [sym_comment]; ACTIONS 1432 [sym_ppFragmentExpr; sym__literalStringMultiline;
   sym_identifier]; ACTIONS 1442 [sym_kDefault; sym_kNodefault]; ACTIONS 1445 [sym_kDispId];
   ACTIONS 1432 [sym_kGeneric; sym_kSpecialize; sym_kOperator]; ACTIONS 1448 [sym_kPublic];
   ACTIONS 1442 [sym_kStatic; sym_kVirtual; sym_kAbstract; sym_kDynamic; sym_kOverride;
   sym_kOverload; sym_kReintroduce; sym_kStdcall; sym_kCdecl; sym_kCppdecl; sym_kPascal;
   sym_kRegister; sym_kMwpascal]; ACTIONS 1451 [sym_kMessage]; ACTIONS 1454 [sym_kDeprecated];
   ACTIONS 1442 [sym_kExperimental; sym_kPlatform; sym_kUnimplemented; sym_kCvar];
   ACTIONS 1457 [sym_kExport]; ACTIONS 1442 [sym_kFar; sym_kNear; sym_kSafecall; sym_kAssembler;
   sym_kNostackframe; sym_kInterrupt; sym_kNoreturn; sym_kIocheck; sym_kLocal; sym_kHardfloat;
   sym_kSoftfloat; sym_kMs_abi_default; sym_kMs_abi_cdecl; sym_kSaveregisters;
   sym_kSysv_abi_default; sym_kSysv_abi_cdecl; sym_kVectorcall; sym_kVarargs; sym_kWinapi];
   ACTIONS 1460 [sym_kAlias]; ACTIONS 1432 [sym_kAsm; sym_kBegin; sym_kCase; sym_kClass;
   sym_kConst; sym_kConstructor; sym_kDestructor; sym_kExports; sym_kFor; sym_kFunction;
   sym_kGoto; sym_kIf; sym_kInherited]; ACTIONS 1016 [sym_kInline]; ACTIONS 1432 [sym_kLabel;
   sym_kNil; sym_kNot; sym_kProcedure; sym_kProperty; sym_kRaise; sym_kRepeat;
   sym_kResourcestring; sym_kString; sym_kThreadvar; sym_kTry; sym_kType; sym_kUses; sym_kVar;
   sym_kWhile; sym_kWith]].

(** State 801. *)
Definition ts_parse_table_801 : parse_row :=
  [STATE 2921 [sym__ppIf]; STATE 1214 [sym__procAttributeNoExt];
   STATE 1215 [sym__procAttributesPp]; STATE 15691 [sym_procAttribute];
   STATE 777 [aux_sym__declProc_repeat1]; ACTIONS 6287 [anon_sym_SEMI; anon_sym_COMMA];
   ACTIONS 6289 [anon_sym_LBRACK]; ACTIONS 6292 [anon_sym_LPAREN];
   ACTIONS 6287 [aux_sym__literalString_token1; anon_sym_POUND];
   ACTIONS 6292 [aux_sym__literalInt_token1]; ACTIONS 6287 [aux_sym__literalInt_token2;
   aux_sym__literalInt_token3]; ACTIONS 6292 [aux_sym__literalFloat_token1];
   ACTIONS 6294 [aux_sym_ppUsesBlock_token1]; ACTIONS 6287 [aux_sym_ppUsesBlock_token2;
   aux_sym_ppUsesBlock_token3]; ACTIONS 6292 [sym_kAdd; sym_kSub]; ACTIONS 6287 [sym_kAt;
   sym_kTrue; sym_kFalse]; ACTIONS 3 [sym__space]; ACTIONS 5 [sym_ppDirective];
   ACTIONS 3 [sym_comment]; ACTIONS 6287 [sym_ppFragmentExpr; sym__literalStringMultiline;
   sym_identifier]; ACTIONS 6297 [sym_kDefault; sym_kNodefault]; ACTIONS 6300 [sym_kDispId];
   ACTIONS 6287 [sym_kGeneric; sym_kSpecialize; sym_kOperator]; ACTIONS 6303 [sym_kPublic];
   ACTIONS 6297 [sym_kStatic; sym_kVirtual; sym_kAbstract; sym_kDynamic; sym_kOverride;
   sym_kOverload; sym_kReintroduce; sym_kStdcall; sym_kCdecl; sym_kCppdecl; sym_kPascal;
   sym_kRegister; sym_kMwpascal]; ACTIONS 6306 [sym_kMessage]; ACTIONS 6309 [sym_kDeprecated];
   ACTIONS 6297 [sym_kExperimental; sym_kPlatform; sym_kUnimplemented; sym_kCvar];
   ACTIONS 6312 [sym_kExport]; ACTIONS 6297 [sym_kFar; sym_kNear; sym_kSafecall; sym_kAssembler;
   sym_kNostackframe; sym_kInterrupt; sym_kNoreturn; sym_kIocheck; sym_kLocal; sym_kHardfloat;
   sym_kSoftfloat; sym_kMs_abi_default; sym_kMs_abi_cdecl; sym_kSaveregisters;
   sym_kSysv_abi_default; sym_kSysv_abi_cdecl; sym_kVectorcall; sym_kVarargs; sym_kWinapi];
   ACTIONS 6315 [sym_kAlias]; ACTIONS 6287 [sym_kAsm; sym_kBegin; sym_kCase; sym_kClass;
   sym_kConst; sym_kConstructor; sym_kDestructor; sym_kExports; sym_kFor; sym_kFunction;
   sym_kGoto; sym_kIf; sym_kInherited]; ACTIONS 1016 [sym_kInline]; ACTIONS 6287 [sym_kLabel;
   sym_kNil; sym_kNot; sym_kProcedure; sym_kProperty; sym_kRaise; sym_kRepeat;
   sym_kResourcestring; sym_kString; sym_kThreadvar; sym_kTry; sym_kType; sym_kUses; sym_kVar;
   sym_kWhile; sym_kWith]].

(** State 802. *)
Definition ts_parse_table_802 : parse_row :=
  [STATE 2921 [sym__ppIf]; STATE 1214 [sym__procAttributeNoExt];
   STATE 1215 [sym__procAttributesPp]; STATE 15691 [sym_procAttribute];
   STATE 828 [aux_sym__declProc_repeat1]; ACTIONS 1477 [anon_sym_SEMI; anon_sym_COMMA];
   ACTIONS 6318 [anon_sym_LBRACK]; ACTIONS 1482 [anon_sym_LPAREN];
   ACTIONS 1477 [aux_sym__literalString_token1; anon_sym_POUND];
   ACTIONS 1482 [aux_sym__literalInt_token1]; ACTIONS 1477 [aux_sym__literalInt_token2;
   aux_sym__literalInt_token3]; ACTIONS 1482 [aux_sym__literalFloat_token1];
   ACTIONS 1484 [aux_sym_ppUsesBlock_token1]; ACTIONS 1477 [aux_sym_ppUsesBlock_token2;
   aux_sym_ppUsesBlock_token3]; ACTIONS 1482 [sym_kAdd; sym_kSub]; ACTIONS 1477 [sym_kAt;
   sym_kTrue; sym_kFalse]; ACTIONS 3 [sym__space]; ACTIONS 5 [sym_ppDirective];
   ACTIONS 3 [sym_comment]; ACTIONS 1477 [sym_ppFragmentExpr; sym__literalStringMultiline;
   sym_identifier]; ACTIONS 1487 [sym_kDefault; sym_kNodefault]; ACTIONS 1490 [sym_kDispId];
   ACTIONS 1477 [sym_kGeneric; sym_kSpecialize; sym_kOperator]; ACTIONS 1493 [sym_kPublic];
   ACTIONS 1487 [sym_kStatic; sym_kVirtual; sym_kAbstract; sym_kDynamic; sym_kOverride;
   sym_kOverload; sym_kReintroduce; sym_kStdcall; sym_kCdecl; sym_kCppdecl; sym_kPascal;
   sym_kRegister; sym_kMwpascal]; ACTIONS 1496 [sym_kMessage]; ACTIONS 1499 [sym_kDeprecated];
   ACTIONS 1487 [sym_kExperimental; sym_kPlatform; sym_kUnimplemented; sym_kCvar];
   ACTIONS 1502 [sym_kExport]; ACTIONS 1487 [sym_kFar; sym_kNear; sym_kSafecall; sym_kAssembler;
   sym_kNostackframe; sym_kInterrupt; sym_kNoreturn; sym_kIocheck; sym_kLocal; sym_kHardfloat;
   sym_kSoftfloat; sym_kMs_abi_default; sym_kMs_abi_cdecl; sym_kSaveregisters;
   sym_kSysv_abi_default; sym_kSysv_abi_cdecl; sym_kVectorcall; sym_kVarargs; sym_kWinapi];
   ACTIONS 1505 [sym_kAlias]; ACTIONS 1477 [sym_kAsm; sym_kBegin; sym_kCase; sym_kClass;
   sym_kConst; sym_kConstructor; sym_kDestructor; sym_kExports; sym_kFor; sym_kFunction;
   sym_kGoto; sym_kIf; sym_kInherited]; ACTIONS 1016 [sym_kInline]; ACTIONS 1477 [sym_kLabel;
   sym_kNil; sym_kNot; sym_kProcedure; sym_kProperty; sym_kRaise; sym_kRepeat;
   sym_kResourcestring; sym_kString; sym_kThreadvar; sym_kTry; sym_kType; sym_kUses; sym_kVar;
   sym_kWhile; sym_kWith]].

(** State 803. *)
Definition ts_parse_table_803 : parse_row :=
  [STATE 2921 [sym__ppIf]; STATE 1214 [sym__procAttributeNoExt];
   STATE 1215 [sym__procAttributesPp]; STATE 15691 [sym_procAttribute];
   STATE 822 [aux_sym__declProc_repeat1]; ACTIONS 6321 [anon_sym_SEMI; anon_sym_COMMA];
   ACTIONS 6323 [anon_sym_LBRACK]; ACTIONS 6326 [anon_sym_LPAREN];
   ACTIONS 6321 [aux_sym__literalString_token1; anon_sym_POUND];
   ACTIONS 6326 [aux_sym__literalInt_token1]; ACTIONS 6321 [aux_sym__literalInt_token2;
   aux_sym__literalInt_token3]; ACTIONS 6326 [aux_sym__literalFloat_token1];
   ACTIONS 6328 [aux_sym_ppUsesBlock_token1]; ACTIONS 6321 [aux_sym_ppUsesBlock_token2;
   aux_sym_ppUsesBlock_token3]; ACTIONS 6326 [sym_kAdd; sym_kSub]; ACTIONS 6321 [sym_kAt;
   sym_kTrue; sym_kFalse]; ACTIONS 3 [sym__space]; ACTIONS 5 [sym_ppDirective];
   ACTIONS 3 [sym_comment]; ACTIONS 6321 [sym_ppFragmentExpr; sym__literalStringMultiline;
   sym_identifier]; ACTIONS 6331 [sym_kDefault; sym_kNodefault]; ACTIONS 6334 [sym_kDispId];
   ACTIONS 6321 [sym_kGeneric; sym_kSpecialize; sym_kOperator]; ACTIONS 6337 [sym_kPublic];
   ACTIONS 6331 [sym_kStatic; sym_kVirtual; sym_kAbstract; sym_kDynamic; sym_kOverride;
   sym_kOverload; sym_kReintroduce; sym_kStdcall; sym_kCdecl; sym_kCppdecl; sym_kPascal;
   sym_kRegister; sym_kMwpascal]; ACTIONS 6340 [sym_kMessage]; ACTIONS 6343 [sym_kDeprecated];
   ACTIONS 6331 [sym_kExperimental; sym_kPlatform; sym_kUnimplemented; sym_kCvar];
   ACTIONS 6346 [sym_kExport]; ACTIONS 6331 [sym_kFar; sym_kNear; sym_kSafecall; sym_kAssembler;
   sym_kNostackframe; sym_kInterrupt; sym_kNoreturn; sym_kIocheck; sym_kLocal; sym_kHardfloat;
   sym_kSoftfloat; sym_kMs_abi_default; sym_kMs_abi_cdecl; sym_kSaveregisters;
   sym_kSysv_abi_default; sym_kSysv_abi_cdecl; sym_kVectorcall; sym_kVarargs; sym_kWinapi];
   ACTIONS 6349 [sym_kAlias]; ACTIONS 6321 [sym_kAsm; sym_kBegin; sym_kCase; sym_kClass;
   sym_kConst; sym_kConstructor; sym_kDestructor; sym_kExports; sym_kFor; sym_kFunction;
   sym_kGoto; sym_kIf; sym_kInherited]; ACTIONS 1016 [sym_kInline]; ACTIONS 6321 [sym_kLabel;
   sym_kNil; sym_kNot; sym_kProcedure; sym_kProperty; sym_kRaise; sym_kRepeat;
   sym_kResourcestring; sym_kString; sym_kThreadvar; sym_kTry; sym_kType; sym_kUses; sym_kVar;
   sym_kWhile; sym_kWith]].

(** State 804. *)
Definition ts_parse_table_804 : parse_row :=
  [STATE 2921 [sym__ppIf]; STATE 1214 [sym__procAttributeNoExt];
   STATE 1215 [sym__procAttributesPp]; STATE 15691 [sym_procAttribute];
   STATE 777 [aux_sym__declProc_repeat1]; ACTIONS 2841 [anon_sym_SEMI; anon_sym_COMMA];
   ACTIONS 6352 [anon_sym_LBRACK]; ACTIONS 2846 [anon_sym_LPAREN];
   ACTIONS 2841 [aux_sym__literalString_token1; anon_sym_POUND];
   ACTIONS 2846 [aux_sym__literalInt_token1]; ACTIONS 2841 [aux_sym__literalInt_token2;
   aux_sym__literalInt_token3]; ACTIONS 2846 [aux_sym__literalFloat_token1];
   ACTIONS 2848 [aux_sym_ppUsesBlock_token1]; ACTIONS 2841 [aux_sym_ppUsesBlock_token2;
   aux_sym_ppUsesBlock_token3]; ACTIONS 2846 [sym_kAdd; sym_kSub]; ACTIONS 2841 [sym_kAt;
   sym_kTrue; sym_kFalse]; ACTIONS 3 [sym__space]; ACTIONS 5 [sym_ppDirective];
   ACTIONS 3 [sym_comment]; ACTIONS 2841 [sym_ppFragmentExpr; sym__literalStringMultiline;
   sym_identifier]; ACTIONS 2851 [sym_kDefault; sym_kNodefault]; ACTIONS 2854 [sym_kDispId];
   ACTIONS 2841 [sym_kGeneric; sym_kSpecialize; sym_kOperator]; ACTIONS 2857 [sym_kPublic];
   ACTIONS 2851 [sym_kStatic; sym_kVirtual; sym_kAbstract; sym_kDynamic; sym_kOverride;
   sym_kOverload; sym_kReintroduce; sym_kStdcall; sym_kCdecl; sym_kCppdecl; sym_kPascal;
   sym_kRegister; sym_kMwpascal]; ACTIONS 2860 [sym_kMessage]; ACTIONS 2863 [sym_kDeprecated];
   ACTIONS 2851 [sym_kExperimental; sym_kPlatform; sym_kUnimplemented; sym_kCvar];
   ACTIONS 2866 [sym_kExport]; ACTIONS 2851 [sym_kFar; sym_kNear; sym_kSafecall; sym_kAssembler;
   sym_kNostackframe; sym_kInterrupt; sym_kNoreturn; sym_kIocheck; sym_kLocal; sym_kHardfloat;
   sym_kSoftfloat; sym_kMs_abi_default; sym_kMs_abi_cdecl; sym_kSaveregisters;
   sym_kSysv_abi_default; sym_kSysv_abi_cdecl; sym_kVectorcall; sym_kVarargs; sym_kWinapi];
   ACTIONS 2869 [sym_kAlias]; ACTIONS 2841 [sym_kAsm; sym_kBegin; sym_kCase; sym_kClass;
   sym_kConst; sym_kConstructor; sym_kDestructor; sym_kExports; sym_kFor; sym_kFunction;
   sym_kGoto; sym_kIf; sym_kInherited]; ACTIONS 1016 [sym_kInline]; ACTIONS 2841 [sym_kLabel;
   sym_kNil; sym_kNot; sym_kProcedure; sym_kProperty; sym_kRaise; sym_kRepeat;
   sym_kResourcestring; sym_kString; sym_kThreadvar; sym_kTry; sym_kType; sym_kUses; sym_kVar;
   sym_kWhile; sym_kWith]].

(** State 805. *)
Definition ts_parse_table_805 : parse_row :=
  [STATE 2921 [sym__ppIf]; STATE 1214 [sym__procAttributeNoExt];
   STATE 1215 [sym__procAttributesPp]; STATE 15691 [sym_procAttribute];
   STATE 813 [aux_sym__declProc_repeat1]; ACTIONS 6355 [anon_sym_SEMI; anon_sym_COMMA];
   ACTIONS 6357 [anon_sym_LBRACK]; ACTIONS 6360 [anon_sym_LPAREN];
   ACTIONS 6355 [aux_sym__literalString_token1; anon_sym_POUND];
   ACTIONS 6360 [aux_sym__literalInt_token1]; ACTIONS 6355 [aux_sym__literalInt_token2;
   aux_sym__literalInt_token3]; ACTIONS 6360 [aux_sym__literalFloat_token1];
   ACTIONS 6362 [aux_sym_ppUsesBlock_token1]; ACTIONS 6355 [aux_sym_ppUsesBlock_token2;
   aux_sym_ppUsesBlock_token3]; ACTIONS 6360 [sym_kAdd; sym_kSub]; ACTIONS 6355 [sym_kAt;
   sym_kTrue; sym_kFalse]; ACTIONS 3 [sym__space]; ACTIONS 5 [sym_ppDirective];
   ACTIONS 3 [sym_comment]; ACTIONS 6355 [sym_ppFragmentExpr; sym__literalStringMultiline;
   sym_identifier]; ACTIONS 6365 [sym_kDefault; sym_kNodefault]; ACTIONS 6368 [sym_kDispId];
   ACTIONS 6355 [sym_kGeneric; sym_kSpecialize; sym_kOperator]; ACTIONS 6371 [sym_kPublic];
   ACTIONS 6365 [sym_kStatic; sym_kVirtual; sym_kAbstract; sym_kDynamic; sym_kOverride;
   sym_kOverload; sym_kReintroduce; sym_kStdcall; sym_kCdecl; sym_kCppdecl; sym_kPascal;
   sym_kRegister; sym_kMwpascal]; ACTIONS 6374 [sym_kMessage]; ACTIONS 6377 [sym_kDeprecated];
   ACTIONS 6365 [sym_kExperimental; sym_kPlatform; sym_kUnimplemented; sym_kCvar];
   ACTIONS 6380 [sym_kExport]; ACTIONS 6365 [sym_kFar; sym_kNear; sym_kSafecall; sym_kAssembler;
   sym_kNostackframe; sym_kInterrupt; sym_kNoreturn; sym_kIocheck; sym_kLocal; sym_kHardfloat;
   sym_kSoftfloat; sym_kMs_abi_default; sym_kMs_abi_cdecl; sym_kSaveregisters;
   sym_kSysv_abi_default; sym_kSysv_abi_cdecl; sym_kVectorcall; sym_kVarargs; sym_kWinapi];
   ACTIONS 6383 [sym_kAlias]; ACTIONS 6355 [sym_kAsm; sym_kBegin; sym_kCase; sym_kClass;
   sym_kConst; sym_kConstructor; sym_kDestructor; sym_kExports; sym_kFor; sym_kFunction;
   sym_kGoto; sym_kIf; sym_kInherited]; ACTIONS 1016 [sym_kInline]; ACTIONS 6355 [sym_kLabel;
   sym_kNil; sym_kNot; sym_kProcedure; sym_kProperty; sym_kRaise; sym_kRepeat;
   sym_kResourcestring; sym_kString; sym_kThreadvar; sym_kTry; sym_kType; sym_kUses; sym_kVar;
   sym_kWhile; sym_kWith]].

(** State 806. *)
Definition ts_parse_table_806 : parse_row :=
  [STATE 2921 [sym__ppIf]; STATE 1214 [sym__procAttributeNoExt];
   STATE 1215 [sym__procAttributesPp]; STATE 15691 [sym_procAttribute];
   STATE 832 [aux_sym__declProc_repeat1]; ACTIONS 1508 [anon_sym_SEMI; anon_sym_COMMA];
   ACTIONS 6386 [anon_sym_LBRACK]; ACTIONS 1513 [anon_sym_LPAREN];
   ACTIONS 1508 [aux_sym__literalString_token1; anon_sym_POUND];
   ACTIONS 1513 [aux_sym__literalInt_token1]; ACTIONS 1508 [aux_sym__literalInt_token2;
   aux_sym__literalInt_token3]; ACTIONS 1513 [aux_sym__literalFloat_token1];
   ACTIONS 1515 [aux_sym_ppUsesBlock_token1]; ACTIONS 1508 [aux_sym_ppUsesBlock_token2;
   aux_sym_ppUsesBlock_token3]; ACTIONS 1513 [sym_kAdd; sym_kSub]; ACTIONS 1508 [sym_kAt;
   sym_kTrue; sym_kFalse]; ACTIONS 3 [sym__space]; ACTIONS 5 [sym_ppDirective];
   ACTIONS 3 [sym_comment]; ACTIONS 1508 [sym_ppFragmentExpr; sym__literalStringMultiline;
   sym_identifier]; ACTIONS 1518 [sym_kDefault; sym_kNodefault]; ACTIONS 1521 [sym_kDispId];
   ACTIONS 1508 [sym_kGeneric; sym_kSpecialize; sym_kOperator]; ACTIONS 1524 [sym_kPublic];
   ACTIONS 1518 [sym_kStatic; sym_kVirtual; sym_kAbstract; sym_kDynamic; sym_kOverride;
   sym_kOverload; sym_kReintroduce; sym_kStdcall; sym_kCdecl; sym_kCppdecl; sym_kPascal;
   sym_kRegister; sym_kMwpascal]; ACTIONS 1527 [sym_kMessage]; ACTIONS 1530 [sym_kDeprecated];
   ACTIONS 1518 [sym_kExperimental; sym_kPlatform; sym_kUnimplemented; sym_kCvar];
   ACTIONS 1533 [sym_kExport]; ACTIONS 1518 [sym_kFar; sym_kNear; sym_kSafecall; sym_kAssembler;
   sym_kNostackframe; sym_kInterrupt; sym_kNoreturn; sym_kIocheck; sym_kLocal; sym_kHardfloat;
   sym_kSoftfloat; sym_kMs_abi_default; sym_kMs_abi_cdecl; sym_kSaveregisters;
   sym_kSysv_abi_default; sym_kSysv_abi_cdecl; sym_kVectorcall; sym_kVarargs; sym_kWinapi];
   ACTIONS 1536 [sym_kAlias]; ACTIONS 1508 [sym_kAsm; sym_kBegin; sym_kCase; sym_kClass;
   sym_kConst; sym_kConstructor; sym_kDestructor; sym_kExports; sym_kFor; sym_kFunction;
   sym_kGoto; sym_kIf; sym_kInherited]; ACTIONS 1016 [sym_kInline]; ACTIONS 1508 [sym_kLabel;
   sym_kNil; sym_kNot; sym_kProcedure; sym_kProperty; sym_kRaise; sym_kRepeat;
   sym_kResourcestring; sym_kString; sym_kThreadvar; sym_kTry; sym_kType; sym_kUses; sym_kVar;
   sym_kWhile; sym_kWith]].

(** State 807. *)
Definition ts_parse_table_807 : parse_row :=
  [STATE 2921 [sym__ppIf]; STATE 1214 [sym__procAttributeNoExt];
   STATE 1215 [sym__procAttributesPp]; STATE 15691 [sym_procAttribute];
   STATE 777 [aux_sym__declProc_repeat1]; ACTIONS 6389 [anon_sym_SEMI; anon_sym_COMMA];
   ACTIONS 6391 [anon_sym_LBRACK]; ACTIONS 6394 [anon_sym_LPAREN];
   ACTIONS 6389 [aux_sym__literalString_token1; anon_sym_POUND];
   ACTIONS 6394 [aux_sym__literalInt_token1]; ACTIONS 6389 [aux_sym__literalInt_token2;
   aux_sym__literalInt_token3]; ACTIONS 6394 [aux_sym__literalFloat_token1];
   ACTIONS 6396 [aux_sym_ppUsesBlock_token1]; ACTIONS 6389 [aux_sym_ppUsesBlock_token2;
   aux_sym_ppUsesBlock_token3]; ACTIONS 6394 [sym_kAdd; sym_kSub]; ACTIONS 6389 [sym_kAt;
   sym_kTrue; sym_kFalse]; ACTIONS 3 [sym__space]; ACTIONS 5 [sym_ppDirective];
   ACTIONS 3 [sym_comment]; ACTIONS 6389 [sym_ppFragmentExpr; sym__literalStringMultiline;
   sym_identifier]; ACTIONS 6399 [sym_kDefault; sym_kNodefault]; ACTIONS 6402 [sym_kDispId];
   ACTIONS 6389 [sym_kGeneric; sym_kSpecialize; sym_kOperator]; ACTIONS 6405 [sym_kPublic];
   ACTIONS 6399 [sym_kStatic; sym_kVirtual; sym_kAbstract; sym_kDynamic; sym_kOverride;
   sym_kOverload; sym_kReintroduce; sym_kStdcall; sym_kCdecl; sym_kCppdecl; sym_kPascal;
   sym_kRegister; sym_kMwpascal]; ACTIONS 6408 [sym_kMessage]; ACTIONS 6411 [sym_kDeprecated];
   ACTIONS 6399 [sym_kExperimental; sym_kPlatform; sym_kUnimplemented; sym_kCvar];
   ACTIONS 6414 [sym_kExport]; ACTIONS 6399 [sym_kFar; sym_kNear; sym_kSafecall; sym_kAssembler;
   sym_kNostackframe; sym_kInterrupt; sym_kNoreturn; sym_kIocheck; sym_kLocal; sym_kHardfloat;
   sym_kSoftfloat; sym_kMs_abi_default; sym_kMs_abi_cdecl; sym_kSaveregisters;
   sym_kSysv_abi_default; sym_kSysv_abi_cdecl; sym_kVectorcall; sym_kVarargs; sym_kWinapi];
   ACTIONS 6417 [sym_kAlias]; ACTIONS 6389 [sym_kAsm; sym_kBegin; sym_kCase; sym_kClass;
   sym_kConst; sym_kConstructor; sym_kDestructor; sym_kExports; sym_kFor; sym_kFunction;
   sym_kGoto; sym_kIf; sym_kInherited]; ACTIONS 1016 [sym_kInline]; ACTIONS 6389 [sym_kLabel;
   sym_kNil; sym_kNot; sym_kProcedure; sym_kProperty; sym_kRaise; sym_kRepeat;
   sym_kResourcestring; sym_kString; sym_kThreadvar; sym_kTry; sym_kType; sym_kUses; sym_kVar;
   sym_kWhile; sym_kWith]].

(** State 808. *)
Definition ts_parse_table_808 : parse_row :=
  [STATE 2921 [sym__ppIf]; STATE 1214 [sym__procAttributeNoExt];
   STATE 1215 [sym__procAttributesPp]; STATE 15691 [sym_procAttribute];
   STATE 777 [aux_sym__declProc_repeat1]; ACTIONS 2510 [anon_sym_SEMI; anon_sym_COMMA];
   ACTIONS 6420 [anon_sym_LBRACK]; ACTIONS 2515 [anon_sym_LPAREN];
   ACTIONS 2510 [aux_sym__literalString_token1; anon_sym_POUND];
   ACTIONS 2515 [aux_sym__literalInt_token1]; ACTIONS 2510 [aux_sym__literalInt_token2;
   aux_sym__literalInt_token3]; ACTIONS 2515 [aux_sym__literalFloat_token1];
   ACTIONS 2517 [aux_sym_ppUsesBlock_token1]; ACTIONS 2510 [aux_sym_ppUsesBlock_token2;
   aux_sym_ppUsesBlock_token3]; ACTIONS 2515 [sym_kAdd; sym_kSub]; ACTIONS 2510 [sym_kAt;
   sym_kTrue; sym_kFalse]; ACTIONS 3 [sym__space]; ACTIONS 5 [sym_ppDirective];
   ACTIONS 3 [sym_comment]; ACTIONS 2510 [sym_ppFragmentExpr; sym__literalStringMultiline;
   sym_identifier]; ACTIONS 2520 [sym_kDefault; sym_kNodefault]; ACTIONS 2523 [sym_kDispId];
   ACTIONS 2510 [sym_kGeneric; sym_kSpecialize; sym_kOperator]; ACTIONS 2526 [sym_kPublic];
   ACTIONS 2520 [sym_kStatic; sym_kVirtual; sym_kAbstract; sym_kDynamic; sym_kOverride;
   sym_kOverload; sym_kReintroduce; sym_kStdcall; sym_kCdecl; sym_kCppdecl; sym_kPascal;
   sym_kRegister; sym_kMwpascal]; ACTIONS 2529 [sym_kMessage]; ACTIONS 2532 [sym_kDeprecated];
   ACTIONS 2520 [sym_kExperimental; sym_kPlatform; sym_kUnimplemented; sym_kCvar];
   ACTIONS 2535 [sym_kExport]; ACTIONS 2520 [sym_kFar; sym_kNear; sym_kSafecall; sym_kAssembler;
   sym_kNostackframe; sym_kInterrupt; sym_kNoreturn; sym_kIocheck; sym_kLocal; sym_kHardfloat;
   sym_kSoftfloat; sym_kMs_abi_default; sym_kMs_abi_cdecl; sym_kSaveregisters;
   sym_kSysv_abi_default; sym_kSysv_abi_cdecl; sym_kVectorcall; sym_kVarargs; sym_kWinapi];
   ACTIONS 2538 [sym_kAlias]; ACTIONS 2510 [sym_kAsm; sym_kBegin; sym_kCase; sym_kClass;
   sym_kConst; sym_kConstructor; sym_kDestructor; sym_kExports; sym_kFor; sym_kFunction;
   sym_kGoto; sym_kIf; sym_kInherited]; ACTIONS 1016 [sym_kInline]; ACTIONS 2510 [sym_kLabel;
   sym_kNil; sym_kNot; sym_kProcedure; sym_kProperty; sym_kRaise; sym_kRepeat;
   sym_kResourcestring; sym_kString; sym_kThreadvar; sym_kTry; sym_kType; sym_kUses; sym_kVar;
   sym_kWhile; sym_kWith]].

(** State 809. *)
Definition ts_parse_table_809 : parse_row :=
  [STATE 2921 [sym__ppIf]; STATE 1214 [sym__procAttributeNoExt];
   STATE 1215 [sym__procAttributesPp]; STATE 15691 [sym_procAttribute];
   STATE 846 [aux_sym__declProc_repeat1]; ACTIONS 1539 [anon_sym_SEMI; anon_sym_COMMA];
   ACTIONS 6423 [anon_sym_LBRACK]; ACTIONS 1544 [anon_sym_LPAREN];
   ACTIONS 1539 [aux_sym__literalString_token1; anon_sym_POUND];
   ACTIONS 1544 [aux_sym__literalInt_token1]; ACTIONS 1539 [aux_sym__literalInt_token2;
   aux_sym__literalInt_token3]; ACTIONS 1544 [aux_sym__literalFloat_token1];
   ACTIONS 1546 [aux_sym_ppUsesBlock_token1]; ACTIONS 1539 [aux_sym_ppUsesBlock_token2;
   aux_sym_ppUsesBlock_token3]; ACTIONS 1544 [sym_kAdd; sym_kSub]; ACTIONS 1539 [sym_kAt;
   sym_kTrue; sym_kFalse]; ACTIONS 3 [sym__space]; ACTIONS 5 [sym_ppDirective];
   ACTIONS 3 [sym_comment]; ACTIONS 1539 [sym_ppFragmentExpr; sym__literalStringMultiline;
   sym_identifier]; ACTIONS 1549 [sym_kDefault; sym_kNodefault]; ACTIONS 1552 [sym_kDispId];
   ACTIONS 1539 [sym_kGeneric; sym_kSpecialize; sym_kOperator]; ACTIONS 1555 [sym_kPublic];
   ACTIONS 1549 [sym_kStatic; sym_kVirtual; sym_kAbstract; sym_kDynamic; sym_kOverride;
   sym_kOverload; sym_kReintroduce; sym_kStdcall; sym_kCdecl; sym_kCppdecl; sym_kPascal;
   sym_kRegister; sym_kMwpascal]; ACTIONS 1558 [sym_kMessage]; ACTIONS 1561 [sym_kDeprecated];
   ACTIONS 1549 [sym_kExperimental; sym_kPlatform; sym_kUnimplemented; sym_kCvar];
   ACTIONS 1564 [sym_kExport]; ACTIONS 1549 [sym_kFar; sym_kNear; sym_kSafecall; sym_kAssembler;
   sym_kNostackframe; sym_kInterrupt; sym_kNoreturn; sym_kIocheck; sym_kLocal; sym_kHardfloat;
   sym_kSoftfloat; sym_kMs_abi_default; sym_kMs_abi_cdecl; sym_kSaveregisters;
   sym_kSysv_abi_default; sym_kSysv_abi_cdecl; sym_kVectorcall; sym_kVarargs; sym_kWinapi];
   ACTIONS 1567 [sym_kAlias]; ACTIONS 1539 [sym_kAsm; sym_kBegin; sym_kCase; sym_kClass;
   sym_kConst; sym_kConstructor; sym_kDestructor; sym_kExports; sym_kFor; sym_kFunction;
   sym_kGoto; sym_kIf; sym_kInherited]; ACTIONS 1016 [sym_kInline]; ACTIONS 1539 [sym_kLabel;
   sym_kNil; sym_kNot; sym_kProcedure; sym_kProperty; sym_kRaise; sym_kRepeat;
   sym_kResourcestring; sym_kString; sym_kThreadvar; sym_kTry; sym_kType; sym_kUses; sym_kVar;
   sym_kWhile; sym_kWith]].

(** State 810. *)
Definition ts_parse_table_810 : parse_row :=
  [STATE 2921 [sym__ppIf]; STATE 1214 [sym__procAttributeNoExt];
   STATE 1215 [sym__procAttributesPp]; STATE 15691 [sym_procAttribute];
   STATE 777 [aux_sym__declProc_repeat1]; ACTIONS 6426 [anon_sym_SEMI; anon_sym_COMMA];
   ACTIONS 6428 [anon_sym_LBRACK]; ACTIONS 6431 [anon_sym_LPAREN];
   ACTIONS 6426 [aux_sym__literalString_token1; anon_sym_POUND];
   ACTIONS 6431 [aux_sym__literalInt_token1]; ACTIONS 6426 [aux_sym__literalInt_token2;
   aux_sym__literalInt_token3]; ACTIONS 6431 [aux_sym__literalFloat_token1];
   ACTIONS 6433 [aux_sym_ppUsesBlock_token1]; ACTIONS 6426 [aux_sym_ppUsesBlock_token2;
   aux_sym_ppUsesBlock_token3]; ACTIONS 6431 [sym_kAdd; sym_kSub]; ACTIONS 6426 [sym_kAt;
   sym_kTrue; sym_kFalse]; ACTIONS 3 [sym__space]; ACTIONS 5 [sym_ppDirective];
   ACTIONS 3 [sym_comment]; ACTIONS 6426 [sym_ppFragmentExpr; sym__literalStringMultiline;
   sym_identifier]; ACTIONS 6436 [sym_kDefault; sym_kNodefault]; ACTIONS 6439 [sym_kDispId];
   ACTIONS 6426 [sym_kGeneric; sym_kSpecialize; sym_kOperator]; ACTIONS 6442 [sym_kPublic];
   ACTIONS 6436 [sym_kStatic; sym_kVirtual; sym_kAbstract; sym_kDynamic; sym_kOverride;
   sym_kOverload; sym_kReintroduce; sym_kStdcall; sym_kCdecl; sym_kCppdecl; sym_kPascal;
   sym_kRegister; sym_kMwpascal]; ACTIONS 6445 [sym_kMessage]; ACTIONS 6448 [sym_kDeprecated];
   ACTIONS 6436 [sym_kExperimental; sym_kPlatform; sym_kUnimplemented; sym_kCvar];
   ACTIONS 6451 [sym_kExport]; ACTIONS 6436 [sym_kFar; sym_kNear; sym_kSafecall; sym_kAssembler;
   sym_kNostackframe; sym_kInterrupt; sym_kNoreturn; sym_kIocheck; sym_kLocal; sym_kHardfloat;
   sym_kSoftfloat; sym_kMs_abi_default; sym_kMs_abi_cdecl; sym_kSaveregisters;
   sym_kSysv_abi_default; sym_kSysv_abi_cdecl; sym_kVectorcall; sym_kVarargs; sym_kWinapi];
   ACTIONS 6454 [sym_kAlias]; ACTIONS 6426 [sym_kAsm; sym_kBegin; sym_kCase; sym_kClass;
   sym_kConst; sym_kConstructor; sym_kDestructor; sym_kExports; sym_kFor; sym_kFunction;
   sym_kGoto; sym_kIf; sym_kInherited]; ACTIONS 1016 [sym_kInline]; ACTIONS 6426 [sym_kLabel;
   sym_kNil; sym_kNot; sym_kProcedure; sym_kProperty; sym_kRaise; sym_kRepeat;
   sym_kResourcestring; sym_kString; sym_kThreadvar; sym_kTry; sym_kType; sym_kUses; sym_kVar;
   sym_kWhile; sym_kWith]].

(** State 811. *)
Definition ts_parse_table_811 : parse_row :=
  [STATE 2921 [sym__ppIf]; STATE 1214 [sym__procAttributeNoExt];
   STATE 1215 [sym__procAttributesPp]; STATE 15691 [sym_procAttribute];
   STATE 777 [aux_sym__declProc_repeat1]; ACTIONS 1572 [anon_sym_SEMI; anon_sym_COMMA];
   ACTIONS 6457 [anon_sym_LBRACK]; ACTIONS 1577 [anon_sym_LPAREN];
   ACTIONS 1572 [aux_sym__literalString_token1; anon_sym_POUND];
   ACTIONS 1577 [aux_sym__literalInt_token1]; ACTIONS 1572 [aux_sym__literalInt_token2;
   aux_sym__literalInt_token3]; ACTIONS 1577 [aux_sym__literalFloat_token1];
   ACTIONS 1579 [aux_sym_ppUsesBlock_token1]; ACTIONS 1572 [aux_sym_ppUsesBlock_token2;
   aux_sym_ppUsesBlock_token3]; ACTIONS 1577 [sym_kAdd; sym_kSub]; ACTIONS 1572 [sym_kAt;
   sym_kTrue; sym_kFalse]; ACTIONS 3 [sym__space]; ACTIONS 5 [sym_ppDirective];
   ACTIONS 3 [sym_comment]; ACTIONS 1572 [sym_ppFragmentExpr; sym__literalStringMultiline;
   sym_identifier]; ACTIONS 1582 [sym_kDefault; sym_kNodefault]; ACTIONS 1585 [sym_kDispId];
   ACTIONS 1572 [sym_kGeneric; sym_kSpecialize; sym_kOperator]; ACTIONS 1588 [sym_kPublic];
   ACTIONS 1582 [sym_kStatic; sym_kVirtual; sym_kAbstract; sym_kDynamic; sym_kOverride;
   sym_kOverload; sym_kReintroduce; sym_kStdcall; sym_kCdecl; sym_kCppdecl; sym_kPascal;
   sym_kRegister; sym_kMwpascal]; ACTIONS 1591 [sym_kMessage]; ACTIONS 1594 [sym_kDeprecated];
   ACTIONS 1582 [sym_kExperimental; sym_kPlatform; sym_kUnimplemented; sym_kCvar];
   ACTIONS 1597 [sym_kExport]; ACTIONS 1582 [sym_kFar; sym_kNear; sym_kSafecall; sym_kAssembler;
   sym_kNostackframe; sym_kInterrupt; sym_kNoreturn; sym_kIocheck; sym_kLocal; sym_kHardfloat;
   sym_kSoftfloat; sym_kMs_abi_default; sym_kMs_abi_cdecl; sym_kSaveregisters;
   sym_kSysv_abi_default; sym_kSysv_abi_cdecl; sym_kVectorcall; sym_kVarargs; sym_kWinapi];
   ACTIONS 1600 [sym_kAlias]; ACTIONS 1572 [sym_kAsm; sym_kBegin; sym_kCase; sym_kClass;
   sym_kConst; sym_kConstructor; sym_kDestructor; sym_kExports; sym_kFor; sym_kFunction;
   sym_kGoto; sym_kIf; sym_kInherited]; ACTIONS 1016 [sym_kInline]; ACTIONS 1572 [sym_kLabel;
   sym_kNil; sym_kNot; sym_kProcedure; sym_kProperty; sym_kRaise; sym_kRepeat;
   sym_kResourcestring; sym_kString; sym_kThreadvar; sym_kTry; sym_kType; sym_kUses; sym_kVar;
   sym_kWhile; sym_kWith]].

(** State 812. *)
Definition ts_parse_table_812 : parse_row :=
  [STATE 2921 [sym__ppIf]; STATE 1214 [sym__procAttributeNoExt];
   STATE 1215 [sym__procAttributesPp]; STATE 15691 [sym_procAttribute];
   STATE 777 [aux_sym__declProc_repeat1]; ACTIONS 6460 [anon_sym_SEMI; anon_sym_COMMA];
   ACTIONS 6462 [anon_sym_LBRACK]; ACTIONS 6465 [anon_sym_LPAREN];
   ACTIONS 6460 [aux_sym__literalString_token1; anon_sym_POUND];
   ACTIONS 6465 [aux_sym__literalInt_token1]; ACTIONS 6460 [aux_sym__literalInt_token2;
   aux_sym__literalInt_token3]; ACTIONS 6465 [aux_sym__literalFloat_token1];
   ACTIONS 6467 [aux_sym_ppUsesBlock_token1]; ACTIONS 6460 [aux_sym_ppUsesBlock_token2;
   aux_sym_ppUsesBlock_token3]; ACTIONS 6465 [sym_kAdd; sym_kSub]; ACTIONS 6460 [sym_kAt;
   sym_kTrue; sym_kFalse]; ACTIONS 3 [sym__space]; ACTIONS 5 [sym_ppDirective];
   ACTIONS 3 [sym_comment]; ACTIONS 6460 [sym_ppFragmentExpr; sym__literalStringMultiline;
   sym_identifier]; ACTIONS 6470 [sym_kDefault; sym_kNodefault]; ACTIONS 6473 [sym_kDispId];
   ACTIONS 6460 [sym_kGeneric; sym_kSpecialize; sym_kOperator]; ACTIONS 6476 [sym_kPublic];
   ACTIONS 6470 [sym_kStatic; sym_kVirtual; sym_kAbstract; sym_kDynamic; sym_kOverride;
   sym_kOverload; sym_kReintroduce; sym_kStdcall; sym_kCdecl; sym_kCppdecl; sym_kPascal;
   sym_kRegister; sym_kMwpascal]; ACTIONS 6479 [sym_kMessage]; ACTIONS 6482 [sym_kDeprecated];
   ACTIONS 6470 [sym_kExperimental; sym_kPlatform; sym_kUnimplemented; sym_kCvar];
   ACTIONS 6485 [sym_kExport]; ACTIONS 6470 [sym_kFar; sym_kNear; sym_kSafecall; sym_kAssembler;
   sym_kNostackframe; sym_kInterrupt; sym_kNoreturn; sym_kIocheck; sym_kLocal; sym_kHardfloat;
   sym_kSoftfloat; sym_kMs_abi_default; sym_kMs_abi_cdecl; sym_kSaveregisters;
   sym_kSysv_abi_default; sym_kSysv_abi_cdecl; sym_kVectorcall; sym_kVarargs; sym_kWinapi];
   ACTIONS 6488 [sym_kAlias]; ACTIONS 6460 [sym_kAsm; sym_kBegin; sym_kCase; sym_kClass;
   sym_kConst; sym_kConstructor; sym_kDestructor; sym_kExports; sym_kFor; sym_kFunction;
   sym_kGoto; sym_kIf; sym_kInherited]; ACTIONS 1016 [sym_kInline]; ACTIONS 6460 [sym_kLabel;
   sym_kNil; sym_kNot; sym_kProcedure; sym_kProperty; sym_kRaise; sym_kRepeat;
   sym_kResourcestring; sym_kString; sym_kThreadvar; sym_kTry; sym_kType; sym_kUses; sym_kVar;
   sym_kWhile; sym_kWith]].

(** State 813. *)
Definition ts_parse_table_813 : parse_row :=
  [STATE 2921 [sym__ppIf]; STATE 1214 [sym__procAttributeNoExt];
   STATE 1215 [sym__procAttributesPp]; STATE 15691 [sym_procAttribute];
   STATE 777 [aux_sym__declProc_repeat1]; ACTIONS 6491 [anon_sym_SEMI; anon_sym_COMMA];
   ACTIONS 6493 [anon_sym_LBRACK]; ACTIONS 6496 [anon_sym_LPAREN];
   ACTIONS 6491 [aux_sym__literalString_token1; anon_sym_POUND];
   ACTIONS 6496 [aux_sym__literalInt_token1]; ACTIONS 6491 [aux_sym__literalInt_token2;
   aux_sym__literalInt_token3]; ACTIONS 6496 [aux_sym__literalFloat_token1];
   ACTIONS 6498 [aux_sym_ppUsesBlock_token1]; ACTIONS 6491 [aux_sym_ppUsesBlock_token2;
   aux_sym_ppUsesBlock_token3]; ACTIONS 6496 [sym_kAdd; sym_kSub]; ACTIONS 6491 [sym_kAt;
   sym_kTrue; sym_kFalse]; ACTIONS 3 [sym__space]; ACTIONS 5 [sym_ppDirective];
   ACTIONS 3 [sym_comment]; ACTIONS 6491 [sym_ppFragmentExpr; sym__literalStringMultiline;
   sym_identifier]; ACTIONS 6501 [sym_kDefault; sym_kNodefault]; ACTIONS 6504 [sym_kDispId];
   ACTIONS 6491 [sym_kGeneric; sym_kSpecialize; sym_kOperator]; ACTIONS 6507 [sym_kPublic];
   ACTIONS 6501 [sym_kStatic; sym_kVirtual; sym_kAbstract; sym_kDynamic; sym_kOverride;
   sym_kOverload; sym_kReintroduce; sym_kStdcall; sym_kCdecl; sym_kCppdecl; sym_kPascal;
   sym_kRegister; sym_kMwpascal]; ACTIONS 6510 [sym_kMessage]; ACTIONS 6513 [sym_kDeprecated];
   ACTIONS 6501 [sym_kExperimental; sym_kPlatform; sym_kUnimplemented; sym_kCvar];
   ACTIONS 6516 [sym_kExport]; ACTIONS 6501 [sym_kFar; sym_kNear; sym_kSafecall; sym_kAssembler;
   sym_kNostackframe; sym_kInterrupt; sym_kNoreturn; sym_kIocheck; sym_kLocal; sym_kHardfloat;
   sym_kSoftfloat; sym_kMs_abi_default; sym_kMs_abi_cdecl; sym_kSaveregisters;
   sym_kSysv_abi_default; sym_kSysv_abi_cdecl; sym_kVectorcall; sym_kVarargs; sym_kWinapi];
   ACTIONS 6519 [sym_kAlias]; ACTIONS 6491 [sym_kAsm; sym_kBegin; sym_kCase; sym_kClass;
   sym_kConst; sym_kConstructor; sym_kDestructor; sym_kExports; sym_kFor; sym_kFunction;
   sym_kGoto; sym_kIf; sym_kInherited]; ACTIONS 1016 [sym_kInline]; ACTIONS 6491 [sym_kLabel;
   sym_kNil; sym_kNot; sym_kProcedure; sym_kProperty; sym_kRaise; sym_kRepeat;
   sym_kResourcestring; sym_kString; sym_kThreadvar; sym_kTry; sym_kType; sym_kUses; sym_kVar;
   sym_kWhile; sym_kWith]].

(** State 814. *)
Definition ts_parse_table_814 : parse_row :=
  [STATE 2921 [sym__ppIf]; STATE 1214 [sym__procAttributeNoExt];
   STATE 1215 [sym__procAttributesPp]; STATE 15691 [sym_procAttribute];
   STATE 852 [aux_sym__declProc_repeat1]; ACTIONS 1617 [anon_sym_SEMI; anon_sym_COMMA];
   ACTIONS 6522 [anon_sym_LBRACK]; ACTIONS 1622 [anon_sym_LPAREN];
   ACTIONS 1617 [aux_sym__literalString_token1; anon_sym_POUND];
   ACTIONS 1622 [aux_sym__literalInt_token1]; ACTIONS 1617 [aux_sym__literalInt_token2;
   aux_sym__literalInt_token3]; ACTIONS 1622 [aux_sym__literalFloat_token1];
   ACTIONS 1624 [aux_sym_ppUsesBlock_token1]; ACTIONS 1617 [aux_sym_ppUsesBlock_token2;
   aux_sym_ppUsesBlock_token3]; ACTIONS 1622 [sym_kAdd; sym_kSub]; ACTIONS 1617 [sym_kAt;
   sym_kTrue; sym_kFalse]; ACTIONS 3 [sym__space]; ACTIONS 5 [sym_ppDirective];
   ACTIONS 3 [sym_comment]; ACTIONS 1617 [sym_ppFragmentExpr; sym__literalStringMultiline;
   sym_identifier]; ACTIONS 1627 [sym_kDefault; sym_kNodefault]; ACTIONS 1630 [sym_kDispId];
   ACTIONS 1617 [sym_kGeneric; sym_kSpecialize; sym_kOperator]; ACTIONS 1633 [sym_kPublic];
   ACTIONS 1627 [sym_kStatic; sym_kVirtual; sym_kAbstract; sym_kDynamic; sym_kOverride;
   sym_kOverload; sym_kReintroduce; sym_kStdcall; sym_kCdecl; sym_kCppdecl; sym_kPascal;
   sym_kRegister; sym_kMwpascal]; ACTIONS 1636 [sym_kMessage]; ACTIONS 1639 [sym_kDeprecated];
   ACTIONS 1627 [sym_kExperimental; sym_kPlatform; sym_kUnimplemented; sym_kCvar];
   ACTIONS 1642 [sym_kExport]; ACTIONS 1627 [sym_kFar; sym_kNear; sym_kSafecall; sym_kAssembler;
   sym_kNostackframe; sym_kInterrupt; sym_kNoreturn; sym_kIocheck; sym_kLocal; sym_kHardfloat;
   sym_kSoftfloat; sym_kMs_abi_default; sym_kMs_abi_cdecl; sym_kSaveregisters;
   sym_kSysv_abi_default; sym_kSysv_abi_cdecl; sym_kVectorcall; sym_kVarargs; sym_kWinapi];
   ACTIONS 1645 [sym_kAlias]; ACTIONS 1617 [sym_kAsm; sym_kBegin; sym_kCase; sym_kClass;
   sym_kConst; sym_kConstructor; sym_kDestructor; sym_kExports; sym_kFor; sym_kFunction;
   sym_kGoto; sym_kIf; sym_kInherited]; ACTIONS 1016 [sym_kInline]; ACTIONS 1617 [sym_kLabel;
   sym_kNil; sym_kNot; sym_kProcedure; sym_kProperty; sym_kRaise; sym_kRepeat;
   sym_kResourcestring; sym_kString; sym_kThreadvar; sym_kTry; sym_kType; sym_kUses; sym_kVar;
   sym_kWhile; sym_kWith]].

(** State 815. *)
Definition ts_parse_table_815 : parse_row :=
  [STATE 1204 [sym__procAttribute]; STATE 15235 [sym_procAttribute]; STATE 683 [sym_procExternal;
   aux_sym_declVar_repeat2]; ACTIONS 6525 [anon_sym_SEMI; anon_sym_COMMA];
   ACTIONS 6527 [anon_sym_LBRACK]; ACTIONS 6530 [anon_sym_LPAREN];
   ACTIONS 6525 [aux_sym__literalString_token1; anon_sym_POUND];
   ACTIONS 6530 [aux_sym__literalInt_token1]; ACTIONS 6525 [aux_sym__literalInt_token2;
   aux_sym__literalInt_token3]; ACTIONS 6530 [aux_sym__literalFloat_token1];
   ACTIONS 6525 [aux_sym_ppUsesBlock_token1; aux_sym_ppUsesBlock_token2;
   aux_sym_ppUsesBlock_token3]; ACTIONS 6530 [sym_kAdd; sym_kSub]; ACTIONS 6525 [sym_kAt;
   sym_kTrue; sym_kFalse]; ACTIONS 3 [sym__space]; ACTIONS 5 [sym_ppDirective];
   ACTIONS 3 [sym_comment]; ACTIONS 6525 [sym_ppFragmentExpr; sym__literalStringMultiline;
   sym_identifier]; ACTIONS 6532 [sym_kDefault; sym_kNodefault]; ACTIONS 6535 [sym_kDispId];
   ACTIONS 6525 [sym_kGeneric; sym_kSpecialize; sym_kOperator]; ACTIONS 6538 [sym_kPublic];
   ACTIONS 6532 [sym_kStatic; sym_kVirtual; sym_kAbstract; sym_kDynamic; sym_kOverride;
   sym_kOverload; sym_kReintroduce; sym_kStdcall; sym_kCdecl; sym_kCppdecl; sym_kPascal;
   sym_kRegister; sym_kMwpascal]; ACTIONS 3438 [sym_kExternal]; ACTIONS 6541 [sym_kMessage];
   ACTIONS 6544 [sym_kDeprecated]; ACTIONS 6532 [sym_kExperimental; sym_kPlatform;
   sym_kUnimplemented; sym_kCvar]; ACTIONS 6547 [sym_kExport]; ACTIONS 6532 [sym_kFar; sym_kNear;
   sym_kSafecall; sym_kAssembler; sym_kNostackframe; sym_kInterrupt; sym_kNoreturn; sym_kIocheck;
   sym_kLocal; sym_kHardfloat; sym_kSoftfloat; sym_kMs_abi_default; sym_kMs_abi_cdecl;
   sym_kSaveregisters; sym_kSysv_abi_default; sym_kSysv_abi_cdecl; sym_kVectorcall; sym_kVarargs;
   sym_kWinapi]; ACTIONS 6550 [sym_kAlias]; ACTIONS 6525 [sym_kAsm; sym_kBegin; sym_kCase;
   sym_kClass; sym_kConst; sym_kConstructor; sym_kDestructor; sym_kExports; sym_kFor;
   sym_kFunction; sym_kGoto; sym_kIf; sym_kInherited]; ACTIONS 1016 [sym_kInline];
   ACTIONS 6525 [sym_kLabel; sym_kNil; sym_kNot; sym_kProcedure; sym_kProperty; sym_kRaise;
   sym_kRepeat; sym_kResourcestring; sym_kString; sym_kThreadvar; sym_kTry; sym_kType; sym_kUses;
   sym_kVar; sym_kWhile; sym_kWith]].

(** State 816. *)
Definition ts_parse_table_816 : parse_row :=
  [STATE 2921 [sym__ppIf]; STATE 1214 [sym__procAttributeNoExt];
   STATE 1215 [sym__procAttributesPp]; STATE 15691 [sym_procAttribute];
   STATE 734 [aux_sym__declProc_repeat1]; ACTIONS 6553 [anon_sym_SEMI; anon_sym_COMMA];
   ACTIONS 6555 [anon_sym_LBRACK]; ACTIONS 6558 [anon_sym_LPAREN];
   ACTIONS 6553 [aux_sym__literalString_token1; anon_sym_POUND];
   ACTIONS 6558 [aux_sym__literalInt_token1]; ACTIONS 6553 [aux_sym__literalInt_token2;
   aux_sym__literalInt_token3]; ACTIONS 6558 [aux_sym__literalFloat_token1];
   ACTIONS 6560 [aux_sym_ppUsesBlock_token1]; ACTIONS 6553 [aux_sym_ppUsesBlock_token2;
   aux_sym_ppUsesBlock_token3]; ACTIONS 6558 [sym_kAdd; sym_kSub]; ACTIONS 6553 [sym_kAt;
   sym_kTrue; sym_kFalse]; ACTIONS 3 [sym__space]; ACTIONS 5 [sym_ppDirective];
   ACTIONS 3 [sym_comment]; ACTIONS 6553 [sym_ppFragmentExpr; sym__literalStringMultiline;
   sym_identifier]; ACTIONS 6563 [sym_kDefault; sym_kNodefault]; ACTIONS 6566 [sym_kDispId];
   ACTIONS 6553 [sym_kGeneric; sym_kSpecialize; sym_kOperator]; ACTIONS 6569 [sym_kPublic];
   ACTIONS 6563 [sym_kStatic; sym_kVirtual; sym_kAbstract; sym_kDynamic; sym_kOverride;
   sym_kOverload; sym_kReintroduce; sym_kStdcall; sym_kCdecl; sym_kCppdecl; sym_kPascal;
   sym_kRegister; sym_kMwpascal]; ACTIONS 6572 [sym_kMessage]; ACTIONS 6575 [sym_kDeprecated];
   ACTIONS 6563 [sym_kExperimental; sym_kPlatform; sym_kUnimplemented; sym_kCvar];
   ACTIONS 6578 [sym_kExport]; ACTIONS 6563 [sym_kFar; sym_kNear; sym_kSafecall; sym_kAssembler;
   sym_kNostackframe; sym_kInterrupt; sym_kNoreturn; sym_kIocheck; sym_kLocal; sym_kHardfloat;
   sym_kSoftfloat; sym_kMs_abi_default; sym_kMs_abi_cdecl; sym_kSaveregisters;
   sym_kSysv_abi_default; sym_kSysv_abi_cdecl; sym_kVectorcall; sym_kVarargs; sym_kWinapi];
   ACTIONS 6581 [sym_kAlias]; ACTIONS 6553 [sym_kAsm; sym_kBegin; sym_kCase; sym_kClass;
   sym_kConst; sym_kConstructor; sym_kDestructor; sym_kExports; sym_kFor; sym_kFunction;
   sym_kGoto; sym_kIf; sym_kInherited]; ACTIONS 1016 [sym_kInline]; ACTIONS 6553 [sym_kLabel;
   sym_kNil; sym_kNot; sym_kProcedure; sym_kProperty; sym_kRaise; sym_kRepeat;
   sym_kResourcestring; sym_kString; sym_kThreadvar; sym_kTry; sym_kType; sym_kUses; sym_kVar;
   sym_kWhile; sym_kWith]].

(** State 817. *)
Definition ts_parse_table_817 : parse_row :=
  [STATE 1204 [sym__procAttribute]; STATE 15235 [sym_procAttribute]; STATE 817 [sym_procExternal;
   aux_sym_declVar_repeat2]; ACTIONS 6584 [anon_sym_SEMI; anon_sym_COMMA];
   ACTIONS 6586 [anon_sym_LBRACK]; ACTIONS 6589 [anon_sym_LPAREN];
   ACTIONS 6584 [aux_sym__literalString_token1; anon_sym_POUND];
   ACTIONS 6589 [aux_sym__literalInt_token1]; ACTIONS 6584 [aux_sym__literalInt_token2;
   aux_sym__literalInt_token3]; ACTIONS 6589 [aux_sym__literalFloat_token1];
   ACTIONS 6584 [aux_sym_ppUsesBlock_token1; aux_sym_ppUsesBlock_token2;
   aux_sym_ppUsesBlock_token3]; ACTIONS 6589 [sym_kAdd; sym_kSub]; ACTIONS 6584 [sym_kAt;
   sym_kTrue; sym_kFalse]; ACTIONS 3 [sym__space]; ACTIONS 5 [sym_ppDirective];
   ACTIONS 3 [sym_comment]; ACTIONS 6584 [sym_ppFragmentExpr; sym__literalStringMultiline;
   sym_identifier]; ACTIONS 6591 [sym_kDefault; sym_kNodefault]; ACTIONS 6594 [sym_kDispId];
   ACTIONS 6584 [sym_kGeneric; sym_kSpecialize; sym_kOperator]; ACTIONS 6597 [sym_kPublic];
   ACTIONS 6591 [sym_kStatic; sym_kVirtual; sym_kAbstract; sym_kDynamic; sym_kOverride;
   sym_kOverload; sym_kReintroduce; sym_kStdcall; sym_kCdecl; sym_kCppdecl; sym_kPascal;
   sym_kRegister; sym_kMwpascal]; ACTIONS 6600 [sym_kExternal]; ACTIONS 6603 [sym_kMessage];
   ACTIONS 6606 [sym_kDeprecated]; ACTIONS 6591 [sym_kExperimental; sym_kPlatform;
   sym_kUnimplemented; sym_kCvar]; ACTIONS 6609 [sym_kExport]; ACTIONS 6591 [sym_kFar; sym_kNear;
   sym_kSafecall; sym_kAssembler; sym_kNostackframe; sym_kInterrupt; sym_kNoreturn; sym_kIocheck;
   sym_kLocal; sym_kHardfloat; sym_kSoftfloat; sym_kMs_abi_default; sym_kMs_abi_cdecl;
   sym_kSaveregisters; sym_kSysv_abi_default; sym_kSysv_abi_cdecl; sym_kVectorcall; sym_kVarargs;
   sym_kWinapi]; ACTIONS 6612 [sym_kAlias]; ACTIONS 6584 [sym_kAsm; sym_kBegin; sym_kCase;
   sym_kClass; sym_kConst; sym_kConstructor; sym_kDestructor; sym_kExports; sym_kFor;
   sym_kFunction; sym_kGoto; sym_kIf; sym_kInherited]; ACTIONS 6591 [sym_kInline];
   ACTIONS 6584 [sym_kLabel; sym_kNil; sym_kNot; sym_kProcedure; sym_kProperty; sym_kRaise;
   sym_kRepeat; sym_kResourcestring; sym_kString; sym_kThreadvar; sym_kTry; sym_kType; sym_kUses;
   sym_kVar; sym_kWhile; sym_kWith]].

(** State 818. *)
Definition ts_parse_table_818 : parse_row :=
  [STATE 2921 [sym__ppIf]; STATE 1214 [sym__procAttributeNoExt];
   STATE 1215 [sym__procAttributesPp]; STATE 15691 [sym_procAttribute];
   STATE 854 [aux_sym__declProc_repeat1]; ACTIONS 1648 [anon_sym_SEMI; anon_sym_COMMA];
   ACTIONS 6615 [anon_sym_LBRACK]; ACTIONS 1653 [anon_sym_LPAREN];
   ACTIONS 1648 [aux_sym__literalString_token1; anon_sym_POUND];
   ACTIONS 1653 [aux_sym__literalInt_token1]; ACTIONS 1648 [aux_sym__literalInt_token2;
   aux_sym__literalInt_token3]; ACTIONS 1653 [aux_sym__literalFloat_token1];
   ACTIONS 1655 [aux_sym_ppUsesBlock_token1]; ACTIONS 1648 [aux_sym_ppUsesBlock_token2;
   aux_sym_ppUsesBlock_token3]; ACTIONS 1653 [sym_kAdd; sym_kSub]; ACTIONS 1648 [sym_kAt;
   sym_kTrue; sym_kFalse]; ACTIONS 3 [sym__space]; ACTIONS 5 [sym_ppDirective];
   ACTIONS 3 [sym_comment]; ACTIONS 1648 [sym_ppFragmentExpr; sym__literalStringMultiline;
   sym_identifier]; ACTIONS 1658 [sym_kDefault; sym_kNodefault]; ACTIONS 1661 [sym_kDispId];
   ACTIONS 1648 [sym_kGeneric; sym_kSpecialize; sym_kOperator]; ACTIONS 1664 [sym_kPublic];
   ACTIONS 1658 [sym_kStatic; sym_kVirtual; sym_kAbstract; sym_kDynamic; sym_kOverride;
   sym_kOverload; sym_kReintroduce; sym_kStdcall; sym_kCdecl; sym_kCppdecl; sym_kPascal;
   sym_kRegister; sym_kMwpascal]; ACTIONS 1667 [sym_kMessage]; ACTIONS 1670 [sym_kDeprecated];
   ACTIONS 1658 [sym_kExperimental; sym_kPlatform; sym_kUnimplemented; sym_kCvar];
   ACTIONS 1673 [sym_kExport]; ACTIONS 1658 [sym_kFar; sym_kNear; sym_kSafecall; sym_kAssembler;
   sym_kNostackframe; sym_kInterrupt; sym_kNoreturn; sym_kIocheck; sym_kLocal; sym_kHardfloat;
   sym_kSoftfloat; sym_kMs_abi_default; sym_kMs_abi_cdecl; sym_kSaveregisters;
   sym_kSysv_abi_default; sym_kSysv_abi_cdecl; sym_kVectorcall; sym_kVarargs; sym_kWinapi];
   ACTIONS 1676 [sym_kAlias]; ACTIONS 1648 [sym_kAsm; sym_kBegin; sym_kCase; sym_kClass;
   sym_kConst; sym_kConstructor; sym_kDestructor; sym_kExports; sym_kFor; sym_kFunction;
   sym_kGoto; sym_kIf; sym_kInherited]; ACTIONS 1016 [sym_kInline]; ACTIONS 1648 [sym_kLabel;
   sym_kNil; sym_kNot; sym_kProcedure; sym_kProperty; sym_kRaise; sym_kRepeat;
   sym_kResourcestring; sym_kString; sym_kThreadvar; sym_kTry; sym_kType; sym_kUses; sym_kVar;
   sym_kWhile; sym_kWith]].

(** State 819. *)
Definition ts_parse_table_819 : parse_row :=
  [STATE 1204 [sym__procAttribute]; STATE 15235 [sym_procAttribute]; STATE 817 [sym_procExternal;
   aux_sym_declVar_repeat2]; ACTIONS 6618 [anon_sym_SEMI; anon_sym_COMMA];
   ACTIONS 6620 [anon_sym_LBRACK]; ACTIONS 6623 [anon_sym_LPAREN];
   ACTIONS 6618 [aux_sym__literalString_token1; anon_sym_POUND];
   ACTIONS 6623 [aux_sym__literalInt_token1]; ACTIONS 6618 [aux_sym__literalInt_token2;
   aux_sym__literalInt_token3]; ACTIONS 6623 [aux_sym__literalFloat_token1];
   ACTIONS 6618 [aux_sym_ppUsesBlock_token1; aux_sym_ppUsesBlock_token2;
   aux_sym_ppUsesBlock_token3]; ACTIONS 6623 [sym_kAdd; sym_kSub]; ACTIONS 6618 [sym_kAt;
   sym_kTrue; sym_kFalse]; ACTIONS 3 [sym__space]; ACTIONS 5 [sym_ppDirective];
   ACTIONS 3 [sym_comment]; ACTIONS 6618 [sym_ppFragmentExpr; sym__literalStringMultiline;
   sym_identifier]; ACTIONS 6625 [sym_kDefault; sym_kNodefault]; ACTIONS 6628 [sym_kDispId];
   ACTIONS 6618 [sym_kGeneric; sym_kSpecialize; sym_kOperator]; ACTIONS 6631 [sym_kPublic];
   ACTIONS 6625 [sym_kStatic; sym_kVirtual; sym_kAbstract; sym_kDynamic; sym_kOverride;
   sym_kOverload; sym_kReintroduce; sym_kStdcall; sym_kCdecl; sym_kCppdecl; sym_kPascal;
   sym_kRegister; sym_kMwpascal]; ACTIONS 3438 [sym_kExternal]; ACTIONS 6634 [sym_kMessage];
   ACTIONS 6637 [sym_kDeprecated]; ACTIONS 6625 [sym_kExperimental; sym_kPlatform;
   sym_kUnimplemented; sym_kCvar]; ACTIONS 6640 [sym_kExport]; ACTIONS 6625 [sym_kFar; sym_kNear;
   sym_kSafecall; sym_kAssembler; sym_kNostackframe; sym_kInterrupt; sym_kNoreturn; sym_kIocheck;
   sym_kLocal; sym_kHardfloat; sym_kSoftfloat; sym_kMs_abi_default; sym_kMs_abi_cdecl;
   sym_kSaveregisters; sym_kSysv_abi_default; sym_kSysv_abi_cdecl; sym_kVectorcall; sym_kVarargs;
   sym_kWinapi]; ACTIONS 6643 [sym_kAlias]; ACTIONS 6618 [sym_kAsm; sym_kBegin; sym_kCase;
   sym_kClass; sym_kConst; sym_kConstructor; sym_kDestructor; sym_kExports; sym_kFor;
   sym_kFunction; sym_kGoto; sym_kIf; sym_kInherited]; ACTIONS 1016 [sym_kInline];
   ACTIONS 6618 [sym_kLabel; sym_kNil; sym_kNot; sym_kProcedure; sym_kProperty; sym_kRaise;
   sym_kRepeat; sym_kResourcestring; sym_kString; sym_kThreadvar; sym_kTry; sym_kType; sym_kUses;
   sym_kVar; sym_kWhile; sym_kWith]].

(** State 820. *)
Definition ts_parse_table_820 : parse_row :=
  [STATE 2921 [sym__ppIf]; STATE 1214 [sym__procAttributeNoExt];
   STATE 1215 [sym__procAttributesPp]; STATE 15691 [sym_procAttribute];
   STATE 777 [aux_sym__declProc_repeat1]; ACTIONS 6646 [anon_sym_SEMI; anon_sym_COMMA];
   ACTIONS 6648 [anon_sym_LBRACK]; ACTIONS 6651 [anon_sym_LPAREN];
   ACTIONS 6646 [aux_sym__literalString_token1; anon_sym_POUND];
   ACTIONS 6651 [aux_sym__literalInt_token1]; ACTIONS 6646 [aux_sym__literalInt_token2;
   aux_sym__literalInt_token3]; ACTIONS 6651 [aux_sym__literalFloat_token1];
   ACTIONS 6653 [aux_sym_ppUsesBlock_token1]; ACTIONS 6646 [aux_sym_ppUsesBlock_token2;
   aux_sym_ppUsesBlock_token3]; ACTIONS 6651 [sym_kAdd; sym_kSub]; ACTIONS 6646 [sym_kAt;
   sym_kTrue; sym_kFalse]; ACTIONS 3 [sym__space]; ACTIONS 5 [sym_ppDirective];
   ACTIONS 3 [sym_comment]; ACTIONS 6646 [sym_ppFragmentExpr; sym__literalStringMultiline;
   sym_identifier]; ACTIONS 6656 [sym_kDefault; sym_kNodefault]; ACTIONS 6659 [sym_kDispId];
   ACTIONS 6646 [sym_kGeneric; sym_kSpecialize; sym_kOperator]; ACTIONS 6662 [sym_kPublic];
   ACTIONS 6656 [sym_kStatic; sym_kVirtual; sym_kAbstract; sym_kDynamic; sym_kOverride;
   sym_kOverload; sym_kReintroduce; sym_kStdcall; sym_kCdecl; sym_kCppdecl; sym_kPascal;
   sym_kRegister; sym_kMwpascal]; ACTIONS 6665 [sym_kMessage]; ACTIONS 6668 [sym_kDeprecated];
   ACTIONS 6656 [sym_kExperimental; sym_kPlatform; sym_kUnimplemented; sym_kCvar];
   ACTIONS 6671 [sym_kExport]; ACTIONS 6656 [sym_kFar; sym_kNear; sym_kSafecall; sym_kAssembler;
   sym_kNostackframe; sym_kInterrupt; sym_kNoreturn; sym_kIocheck; sym_kLocal; sym_kHardfloat;
   sym_kSoftfloat; sym_kMs_abi_default; sym_kMs_abi_cdecl; sym_kSaveregisters;
   sym_kSysv_abi_default; sym_kSysv_abi_cdecl; sym_kVectorcall; sym_kVarargs; sym_kWinapi];
   ACTIONS 6674 [sym_kAlias]; ACTIONS 6646 [sym_kAsm; sym_kBegin; sym_kCase; sym_kClass;
   sym_kConst; sym_kConstructor; sym_kDestructor; sym_kExports; sym_kFor; sym_kFunction;
   sym_kGoto; sym_kIf; sym_kInherited]; ACTIONS 1016 [sym_kInline]; ACTIONS 6646 [sym_kLabel;
   sym_kNil; sym_kNot; sym_kProcedure; sym_kProperty; sym_kRaise; sym_kRepeat;
   sym_kResourcestring; sym_kString; sym_kThreadvar; sym_kTry; sym_kType; sym_kUses; sym_kVar;
   sym_kWhile; sym_kWith]].

(** State 821. *)
Definition ts_parse_table_821 : parse_row :=
  [STATE 1204 [sym__procAttribute]; STATE 15235 [sym_procAttribute]; STATE 685 [sym_procExternal;
   aux_sym_declVar_repeat2]; ACTIONS 6677 [anon_sym_SEMI; anon_sym_COMMA];
   ACTIONS 6679 [anon_sym_LBRACK]; ACTIONS 6682 [anon_sym_LPAREN];
   ACTIONS 6677 [aux_sym__literalString_token1; anon_sym_POUND];
   ACTIONS 6682 [aux_sym__literalInt_token1]; ACTIONS 6677 [aux_sym__literalInt_token2;
   aux_sym__literalInt_token3]; ACTIONS 6682 [aux_sym__literalFloat_token1];
   ACTIONS 6677 [aux_sym_ppUsesBlock_token1; aux_sym_ppUsesBlock_token2;
   aux_sym_ppUsesBlock_token3]; ACTIONS 6682 [sym_kAdd; sym_kSub]; ACTIONS 6677 [sym_kAt;
   sym_kTrue; sym_kFalse]; ACTIONS 3 [sym__space]; ACTIONS 5 [sym_ppDirective];
   ACTIONS 3 [sym_comment]; ACTIONS 6677 [sym_ppFragmentExpr; sym__literalStringMultiline;
   sym_identifier]; ACTIONS 6684 [sym_kDefault; sym_kNodefault]; ACTIONS 6687 [sym_kDispId];
   ACTIONS 6677 [sym_kGeneric; sym_kSpecialize; sym_kOperator]; ACTIONS 6690 [sym_kPublic];
   ACTIONS 6684 [sym_kStatic; sym_kVirtual; sym_kAbstract; sym_kDynamic; sym_kOverride;
   sym_kOverload; sym_kReintroduce; sym_kStdcall; sym_kCdecl; sym_kCppdecl; sym_kPascal;
   sym_kRegister; sym_kMwpascal]; ACTIONS 3438 [sym_kExternal]; ACTIONS 6693 [sym_kMessage];
   ACTIONS 6696 [sym_kDeprecated]; ACTIONS 6684 [sym_kExperimental; sym_kPlatform;
   sym_kUnimplemented; sym_kCvar]; ACTIONS 6699 [sym_kExport]; ACTIONS 6684 [sym_kFar; sym_kNear;
   sym_kSafecall; sym_kAssembler; sym_kNostackframe; sym_kInterrupt; sym_kNoreturn; sym_kIocheck;
   sym_kLocal; sym_kHardfloat; sym_kSoftfloat; sym_kMs_abi_default; sym_kMs_abi_cdecl;
   sym_kSaveregisters; sym_kSysv_abi_default; sym_kSysv_abi_cdecl; sym_kVectorcall; sym_kVarargs;
   sym_kWinapi]; ACTIONS 6702 [sym_kAlias]; ACTIONS 6677 [sym_kAsm; sym_kBegin; sym_kCase;
   sym_kClass; sym_kConst; sym_kConstructor; sym_kDestructor; sym_kExports; sym_kFor;
   sym_kFunction; sym_kGoto; sym_kIf; sym_kInherited]; ACTIONS 1016 [sym_kInline];
   ACTIONS 6677 [sym_kLabel; sym_kNil; sym_kNot; sym_kProcedure; sym_kProperty; sym_kRaise;
   sym_kRepeat; sym_kResourcestring; sym_kString; sym_kThreadvar; sym_kTry; sym_kType; sym_kUses;
   sym_kVar; sym_kWhile; sym_kWith]].

(** State 822. *)
Definition ts_parse_table_822 : parse_row :=
  [STATE 2921 [sym__ppIf]; STATE 1214 [sym__procAttributeNoExt];
   STATE 1215 [sym__procAttributesPp]; STATE 15691 [sym_procAttribute];
   STATE 777 [aux_sym__declProc_repeat1]; ACTIONS 6705 [anon_sym_SEMI; anon_sym_COMMA];
   ACTIONS 6707 [anon_sym_LBRACK]; ACTIONS 6710 [anon_sym_LPAREN];
   ACTIONS 6705 [aux_sym__literalString_token1; anon_sym_POUND];
   ACTIONS 6710 [aux_sym__literalInt_token1]; ACTIONS 6705 [aux_sym__literalInt_token2;
   aux_sym__literalInt_token3]; ACTIONS 6710 [aux_sym__literalFloat_token1];
   ACTIONS 6712 [aux_sym_ppUsesBlock_token1]; ACTIONS 6705 [aux_sym_ppUsesBlock_token2;
   aux_sym_ppUsesBlock_token3]; ACTIONS 6710 [sym_kAdd; sym_kSub]; ACTIONS 6705 [sym_kAt;
   sym_kTrue; sym_kFalse]; ACTIONS 3 [sym__space]; ACTIONS 5 [sym_ppDirective];
   ACTIONS 3 [sym_comment]; ACTIONS 6705 [sym_ppFragmentExpr; sym__literalStringMultiline;
   sym_identifier]; ACTIONS 6715 [sym_kDefault; sym_kNodefault]; ACTIONS 6718 [sym_kDispId];
   ACTIONS 6705 [sym_kGeneric; sym_kSpecialize; sym_kOperator]; ACTIONS 6721 [sym_kPublic];
   ACTIONS 6715 [sym_kStatic; sym_kVirtual; sym_kAbstract; sym_kDynamic; sym_kOverride;
   sym_kOverload; sym_kReintroduce; sym_kStdcall; sym_kCdecl; sym_kCppdecl; sym_kPascal;
   sym_kRegister; sym_kMwpascal]; ACTIONS 6724 [sym_kMessage]; ACTIONS 6727 [sym_kDeprecated];
   ACTIONS 6715 [sym_kExperimental; sym_kPlatform; sym_kUnimplemented; sym_kCvar];
   ACTIONS 6730 [sym_kExport]; ACTIONS 6715 [sym_kFar; sym_kNear; sym_kSafecall; sym_kAssembler;
   sym_kNostackframe; sym_kInterrupt; sym_kNoreturn; sym_kIocheck; sym_kLocal; sym_kHardfloat;
   sym_kSoftfloat; sym_kMs_abi_default; sym_kMs_abi_cdecl; sym_kSaveregisters;
   sym_kSysv_abi_default; sym_kSysv_abi_cdecl; sym_kVectorcall; sym_kVarargs; sym_kWinapi];
   ACTIONS 6733 [sym_kAlias]; ACTIONS 6705 [sym_kAsm; sym_kBegin; sym_kCase; sym_kClass;
   sym_kConst; sym_kConstructor; sym_kDestructor; sym_kExports; sym_kFor; sym_kFunction;
   sym_kGoto; sym_kIf; sym_kInherited]; ACTIONS 1016 [sym_kInline]; ACTIONS 6705 [sym_kLabel;
   sym_kNil; sym_kNot; sym_kProcedure; sym_kProperty; sym_kRaise; sym_kRepeat;
   sym_kResourcestring; sym_kString; sym_kThreadvar; sym_kTry; sym_kType; sym_kUses; sym_kVar;
   sym_kWhile; sym_kWith]].

(** State 823. *)
Definition ts_parse_table_823 : parse_row :=
  [STATE 1204 [sym__procAttribute]; STATE 15235 [sym_procAttribute]; STATE 817 [sym_procExternal;
   aux_sym_declVar_repeat2]; ACTIONS 6736 [anon_sym_SEMI; anon_sym_COMMA];
   ACTIONS 6738 [anon_sym_LBRACK]; ACTIONS 6741 [anon_sym_LPAREN];
   ACTIONS 6736 [aux_sym__literalString_token1; anon_sym_POUND];
   ACTIONS 6741 [aux_sym__literalInt_token1]; ACTIONS 6736 [aux_sym__literalInt_token2;
   aux_sym__literalInt_token3]; ACTIONS 6741 [aux_sym__literalFloat_token1];
   ACTIONS 6736 [aux_sym_ppUsesBlock_token1; aux_sym_ppUsesBlock_token2;
   aux_sym_ppUsesBlock_token3]; ACTIONS 6741 [sym_kAdd; sym_kSub]; ACTIONS 6736 [sym_kAt;
   sym_kTrue; sym_kFalse]; ACTIONS 3 [sym__space]; ACTIONS 5 [sym_ppDirective];
   ACTIONS 3 [sym_comment]; ACTIONS 6736 [sym_ppFragmentExpr; sym__literalStringMultiline;
   sym_identifier]; ACTIONS 6743 [sym_kDefault; sym_kNodefault]; ACTIONS 6746 [sym_kDispId];
   ACTIONS 6736 [sym_kGeneric; sym_kSpecialize; sym_kOperator]; ACTIONS 6749 [sym_kPublic];
   ACTIONS 6743 [sym_kStatic; sym_kVirtual; sym_kAbstract; sym_kDynamic; sym_kOverride;
   sym_kOverload; sym_kReintroduce; sym_kStdcall; sym_kCdecl; sym_kCppdecl; sym_kPascal;
   sym_kRegister; sym_kMwpascal]; ACTIONS 3438 [sym_kExternal]; ACTIONS 6752 [sym_kMessage];
   ACTIONS 6755 [sym_kDeprecated]; ACTIONS 6743 [sym_kExperimental; sym_kPlatform;
   sym_kUnimplemented; sym_kCvar]; ACTIONS 6758 [sym_kExport]; ACTIONS 6743 [sym_kFar; sym_kNear;
   sym_kSafecall; sym_kAssembler; sym_kNostackframe; sym_kInterrupt; sym_kNoreturn; sym_kIocheck;
   sym_kLocal; sym_kHardfloat; sym_kSoftfloat; sym_kMs_abi_default; sym_kMs_abi_cdecl;
   sym_kSaveregisters; sym_kSysv_abi_default; sym_kSysv_abi_cdecl; sym_kVectorcall; sym_kVarargs;
   sym_kWinapi]; ACTIONS 6761 [sym_kAlias]; ACTIONS 6736 [sym_kAsm; sym_kBegin; sym_kCase;
   sym_kClass; sym_kConst; sym_kConstructor; sym_kDestructor; sym_kExports; sym_kFor;
   sym_kFunction; sym_kGoto; sym_kIf; sym_kInherited]; ACTIONS 1016 [sym_kInline];
   ACTIONS 6736 [sym_kLabel; sym_kNil; sym_kNot; sym_kProcedure; sym_kProperty; sym_kRaise;
   sym_kRepeat; sym_kResourcestring; sym_kString; sym_kThreadvar; sym_kTry; sym_kType; sym_kUses;
   sym_kVar; sym_kWhile; sym_kWith]].

(** State 824. *)
Definition ts_parse_table_824 : parse_row :=
  [STATE 2921 [sym__ppIf]; STATE 1214 [sym__procAttributeNoExt];
   STATE 1215 [sym__procAttributesPp]; STATE 15691 [sym_procAttribute];
   STATE 779 [aux_sym__declProc_repeat1]; ACTIONS 1727 [anon_sym_SEMI; anon_sym_COMMA];
   ACTIONS 6764 [anon_sym_LBRACK]; ACTIONS 1732 [anon_sym_LPAREN];
   ACTIONS 1727 [aux_sym__literalString_token1; anon_sym_POUND];
   ACTIONS 1732 [aux_sym__literalInt_token1]; ACTIONS 1727 [aux_sym__literalInt_token2;
   aux_sym__literalInt_token3]; ACTIONS 1732 [aux_sym__literalFloat_token1];
   ACTIONS 1734 [aux_sym_ppUsesBlock_token1]; ACTIONS 1727 [aux_sym_ppUsesBlock_token2;
   aux_sym_ppUsesBlock_token3]; ACTIONS 1732 [sym_kAdd; sym_kSub]; ACTIONS 1727 [sym_kAt;
   sym_kTrue; sym_kFalse]; ACTIONS 3 [sym__space]; ACTIONS 5 [sym_ppDirective];
   ACTIONS 3 [sym_comment]; ACTIONS 1727 [sym_ppFragmentExpr; sym__literalStringMultiline;
   sym_identifier]; ACTIONS 1737 [sym_kDefault; sym_kNodefault]; ACTIONS 1740 [sym_kDispId];
   ACTIONS 1727 [sym_kGeneric; sym_kSpecialize; sym_kOperator]; ACTIONS 1743 [sym_kPublic];
   ACTIONS 1737 [sym_kStatic; sym_kVirtual; sym_kAbstract; sym_kDynamic; sym_kOverride;
   sym_kOverload; sym_kReintroduce; sym_kStdcall; sym_kCdecl; sym_kCppdecl; sym_kPascal;
   sym_kRegister; sym_kMwpascal]; ACTIONS 1746 [sym_kMessage]; ACTIONS 1749 [sym_kDeprecated];
   ACTIONS 1737 [sym_kExperimental; sym_kPlatform; sym_kUnimplemented; sym_kCvar];
   ACTIONS 1752 [sym_kExport]; ACTIONS 1737 [sym_kFar; sym_kNear; sym_kSafecall; sym_kAssembler;
   sym_kNostackframe; sym_kInterrupt; sym_kNoreturn; sym_kIocheck; sym_kLocal; sym_kHardfloat;
   sym_kSoftfloat; sym_kMs_abi_default; sym_kMs_abi_cdecl; sym_kSaveregisters;
   sym_kSysv_abi_default; sym_kSysv_abi_cdecl; sym_kVectorcall; sym_kVarargs; sym_kWinapi];
   ACTIONS 1755 [sym_kAlias]; ACTIONS 1727 [sym_kAsm; sym_kBegin; sym_kCase; sym_kClass;
   sym_kConst; sym_kConstructor; sym_kDestructor; sym_kExports; sym_kFor; sym_kFunction;
   sym_kGoto; sym_kIf; sym_kInherited]; ACTIONS 1016 [sym_kInline]; ACTIONS 1727 [sym_kLabel;
   sym_kNil; sym_kNot; sym_kProcedure; sym_kProperty; sym_kRaise; sym_kRepeat;
   sym_kResourcestring; sym_kString; sym_kThreadvar; sym_kTry; sym_kType; sym_kUses; sym_kVar;
   sym_kWhile; sym_kWith]].

(** State 825. *)
Definition ts_parse_table_825 : parse_row :=
  [STATE 1204 [sym__procAttribute]; STATE 15235 [sym_procAttribute]; STATE 817 [sym_procExternal;
   aux_sym_declVar_repeat2]; ACTIONS 6767 [anon_sym_SEMI; anon_sym_COMMA];
   ACTIONS 6769 [anon_sym_LBRACK]; ACTIONS 6772 [anon_sym_LPAREN];
   ACTIONS 6767 [aux_sym__literalString_token1; anon_sym_POUND];
   ACTIONS 6772 [aux_sym__literalInt_token1]; ACTIONS 6767 [aux_sym__literalInt_token2;
   aux_sym__literalInt_token3]; ACTIONS 6772 [aux_sym__literalFloat_token1];
   ACTIONS 6767 [aux_sym_ppUsesBlock_token1; aux_sym_ppUsesBlock_token2;
   aux_sym_ppUsesBlock_token3]; ACTIONS 6772 [sym_kAdd; sym_kSub]; ACTIONS 6767 [sym_kAt;
   sym_kTrue; sym_kFalse]; ACTIONS 3 [sym__space]; ACTIONS 5 [sym_ppDirective];
   ACTIONS 3 [sym_comment]; ACTIONS 6767 [sym_ppFragmentExpr; sym__literalStringMultiline;
   sym_identifier]; ACTIONS 6774 [sym_kDefault; sym_kNodefault]; ACTIONS 6777 [sym_kDispId];
   ACTIONS 6767 [sym_kGeneric; sym_kSpecialize; sym_kOperator]; ACTIONS 6780 [sym_kPublic];
   ACTIONS 6774 [sym_kStatic; sym_kVirtual; sym_kAbstract; sym_kDynamic; sym_kOverride;
   sym_kOverload; sym_kReintroduce; sym_kStdcall; sym_kCdecl; sym_kCppdecl; sym_kPascal;
   sym_kRegister; sym_kMwpascal]; ACTIONS 3438 [sym_kExternal]; ACTIONS 6783 [sym_kMessage];
   ACTIONS 6786 [sym_kDeprecated]; ACTIONS 6774 [sym_kExperimental; sym_kPlatform;
   sym_kUnimplemented; sym_kCvar]; ACTIONS 6789 [sym_kExport]; ACTIONS 6774 [sym_kFar; sym_kNear;
   sym_kSafecall; sym_kAssembler; sym_kNostackframe; sym_kInterrupt; sym_kNoreturn; sym_kIocheck;
   sym_kLocal; sym_kHardfloat; sym_kSoftfloat; sym_kMs_abi_default; sym_kMs_abi_cdecl;
   sym_kSaveregisters; sym_kSysv_abi_default; sym_kSysv_abi_cdecl; sym_kVectorcall; sym_kVarargs;
   sym_kWinapi]; ACTIONS 6792 [sym_kAlias]; ACTIONS 6767 [sym_kAsm; sym_kBegin; sym_kCase;
   sym_kClass; sym_kConst; sym_kConstructor; sym_kDestructor; sym_kExports; sym_kFor;
   sym_kFunction; sym_kGoto; sym_kIf; sym_kInherited]; ACTIONS 1016 [sym_kInline];
   ACTIONS 6767 [sym_kLabel; sym_kNil; sym_kNot; sym_kProcedure; sym_kProperty; sym_kRaise;
   sym_kRepeat; sym_kResourcestring; sym_kString; sym_kThreadvar; sym_kTry; sym_kType; sym_kUses;
   sym_kVar; sym_kWhile; sym_kWith]].

(** State 826. *)
Definition ts_parse_table_826 : parse_row :=
  [STATE 1204 [sym__procAttribute]; STATE 15235 [sym_procAttribute]; STATE 817 [sym_procExternal;
   aux_sym_declVar_repeat2]; ACTIONS 6795 [anon_sym_SEMI; anon_sym_COMMA];
   ACTIONS 6797 [anon_sym_LBRACK]; ACTIONS 6800 [anon_sym_LPAREN];
   ACTIONS 6795 [aux_sym__literalString_token1; anon_sym_POUND];
   ACTIONS 6800 [aux_sym__literalInt_token1]; ACTIONS 6795 [aux_sym__literalInt_token2;
   aux_sym__literalInt_token3]; ACTIONS 6800 [aux_sym__literalFloat_token1];
   ACTIONS 6795 [aux_sym_ppUsesBlock_token1; aux_sym_ppUsesBlock_token2;
   aux_sym_ppUsesBlock_token3]; ACTIONS 6800 [sym_kAdd; sym_kSub]; ACTIONS 6795 [sym_kAt;
   sym_kTrue; sym_kFalse]; ACTIONS 3 [sym__space]; ACTIONS 5 [sym_ppDirective];
   ACTIONS 3 [sym_comment]; ACTIONS 6795 [sym_ppFragmentExpr; sym__literalStringMultiline;
   sym_identifier]; ACTIONS 6802 [sym_kDefault; sym_kNodefault]; ACTIONS 6805 [sym_kDispId];
   ACTIONS 6795 [sym_kGeneric; sym_kSpecialize; sym_kOperator]; ACTIONS 6808 [sym_kPublic];
   ACTIONS 6802 [sym_kStatic; sym_kVirtual; sym_kAbstract; sym_kDynamic; sym_kOverride;
   sym_kOverload; sym_kReintroduce; sym_kStdcall; sym_kCdecl; sym_kCppdecl; sym_kPascal;
   sym_kRegister; sym_kMwpascal]; ACTIONS 3438 [sym_kExternal]; ACTIONS 6811 [sym_kMessage];
   ACTIONS 6814 [sym_kDeprecated]; ACTIONS 6802 [sym_kExperimental; sym_kPlatform;
   sym_kUnimplemented; sym_kCvar]; ACTIONS 6817 [sym_kExport]; ACTIONS 6802 [sym_kFar; sym_kNear;
   sym_kSafecall; sym_kAssembler; sym_kNostackframe; sym_kInterrupt; sym_kNoreturn; sym_kIocheck;
   sym_kLocal; sym_kHardfloat; sym_kSoftfloat; sym_kMs_abi_default; sym_kMs_abi_cdecl;
   sym_kSaveregisters; sym_kSysv_abi_default; sym_kSysv_abi_cdecl; sym_kVectorcall; sym_kVarargs;
   sym_kWinapi]; ACTIONS 6820 [sym_kAlias]; ACTIONS 6795 [sym_kAsm; sym_kBegin; sym_kCase;
   sym_kClass; sym_kConst; sym_kConstructor; sym_kDestructor; sym_kExports; sym_kFor;
   sym_kFunction; sym_kGoto; sym_kIf; sym_kInherited]; ACTIONS 1016 [sym_kInline];
   ACTIONS 6795 [sym_kLabel; sym_kNil; sym_kNot; sym_kProcedure; sym_kProperty; sym_kRaise;
   sym_kRepeat; sym_kResourcestring; sym_kString; sym_kThreadvar; sym_kTry; sym_kType; sym_kUses;
   sym_kVar; sym_kWhile; sym_kWith]].

(** State 827. *)
Definition ts_parse_table_827 : parse_row :=
  [STATE 1204 [sym__procAttribute]; STATE 15235 [sym_procAttribute]; STATE 690 [sym_procExternal;
   aux_sym_declVar_repeat2]; ACTIONS 6823 [anon_sym_SEMI; anon_sym_COMMA];
   ACTIONS 6825 [anon_sym_LBRACK]; ACTIONS 6828 [anon_sym_LPAREN];
   ACTIONS 6823 [aux_sym__literalString_token1; anon_sym_POUND];
   ACTIONS 6828 [aux_sym__literalInt_token1]; ACTIONS 6823 [aux_sym__literalInt_token2;
   aux_sym__literalInt_token3]; ACTIONS 6828 [aux_sym__literalFloat_token1];
   ACTIONS 6823 [aux_sym_ppUsesBlock_token1; aux_sym_ppUsesBlock_token2;
   aux_sym_ppUsesBlock_token3]; ACTIONS 6828 [sym_kAdd; sym_kSub]; ACTIONS 6823 [sym_kAt;
   sym_kTrue; sym_kFalse]; ACTIONS 3 [sym__space]; ACTIONS 5 [sym_ppDirective];
   ACTIONS 3 [sym_comment]; ACTIONS 6823 [sym_ppFragmentExpr; sym__literalStringMultiline;
   sym_identifier]; ACTIONS 6830 [sym_kDefault; sym_kNodefault]; ACTIONS 6833 [sym_kDispId];
   ACTIONS 6823 [sym_kGeneric; sym_kSpecialize; sym_kOperator]; ACTIONS 6836 [sym_kPublic];
   ACTIONS 6830 [sym_kStatic; sym_kVirtual; sym_kAbstract; sym_kDynamic; sym_kOverride;
   sym_kOverload; sym_kReintroduce; sym_kStdcall; sym_kCdecl; sym_kCppdecl; sym_kPascal;
   sym_kRegister; sym_kMwpascal]; ACTIONS 3438 [sym_kExternal]; ACTIONS 6839 [sym_kMessage];
   ACTIONS 6842 [sym_kDeprecated]; ACTIONS 6830 [sym_kExperimental; sym_kPlatform;
   sym_kUnimplemented; sym_kCvar]; ACTIONS 6845 [sym_kExport]; ACTIONS 6830 [sym_kFar; sym_kNear;
   sym_kSafecall; sym_kAssembler; sym_kNostackframe; sym_kInterrupt; sym_kNoreturn; sym_kIocheck;
   sym_kLocal; sym_kHardfloat; sym_kSoftfloat; sym_kMs_abi_default; sym_kMs_abi_cdecl;
   sym_kSaveregisters; sym_kSysv_abi_default; sym_kSysv_abi_cdecl; sym_kVectorcall; sym_kVarargs;
   sym_kWinapi]; ACTIONS 6848 [sym_kAlias]; ACTIONS 6823 [sym_kAsm; sym_kBegin; sym_kCase;
   sym_kClass; sym_kConst; sym_kConstructor; sym_kDestructor; sym_kExports; sym_kFor;
   sym_kFunction; sym_kGoto; sym_kIf; sym_kInherited]; ACTIONS 1016 [sym_kInline];
   ACTIONS 6823 [sym_kLabel; sym_kNil; sym_kNot; sym_kProcedure; sym_kProperty; sym_kRaise;
   sym_kRepeat; sym_kResourcestring; sym_kString; sym_kThreadvar; sym_kTry; sym_kType; sym_kUses;
   sym_kVar; sym_kWhile; sym_kWith]].

(** State 828. *)
Definition ts_parse_table_828 : parse_row :=
  [STATE 2921 [sym__ppIf]; STATE 1214 [sym__procAttributeNoExt];
   STATE 1215 [sym__procAttributesPp]; STATE 15691 [sym_procAttribute];
   STATE 777 [aux_sym__declProc_repeat1]; ACTIONS 1758 [anon_sym_SEMI; anon_sym_COMMA];
   ACTIONS 6851 [anon_sym_LBRACK]; ACTIONS 1763 [anon_sym_LPAREN];
   ACTIONS 1758 [aux_sym__literalString_token1; anon_sym_POUND];
   ACTIONS 1763 [aux_sym__literalInt_token1]; ACTIONS 1758 [aux_sym__literalInt_token2;
   aux_sym__literalInt_token3]; ACTIONS 1763 [aux_sym__literalFloat_token1];
   ACTIONS 1765 [aux_sym_ppUsesBlock_token1]; ACTIONS 1758 [aux_sym_ppUsesBlock_token2;
   aux_sym_ppUsesBlock_token3]; ACTIONS 1763 [sym_kAdd; sym_kSub]; ACTIONS 1758 [sym_kAt;
   sym_kTrue; sym_kFalse]; ACTIONS 3 [sym__space]; ACTIONS 5 [sym_ppDirective];
   ACTIONS 3 [sym_comment]; ACTIONS 1758 [sym_ppFragmentExpr; sym__literalStringMultiline;
   sym_identifier]; ACTIONS 1768 [sym_kDefault; sym_kNodefault]; ACTIONS 1771 [sym_kDispId];
   ACTIONS 1758 [sym_kGeneric; sym_kSpecialize; sym_kOperator]; ACTIONS 1774 [sym_kPublic];
   ACTIONS 1768 [sym_kStatic; sym_kVirtual; sym_kAbstract; sym_kDynamic; sym_kOverride;
   sym_kOverload; sym_kReintroduce; sym_kStdcall; sym_kCdecl; sym_kCppdecl; sym_kPascal;
   sym_kRegister; sym_kMwpascal]; ACTIONS 1777 [sym_kMessage]; ACTIONS 1780 [sym_kDeprecated];
   ACTIONS 1768 [sym_kExperimental; sym_kPlatform; sym_kUnimplemented; sym_kCvar];
   ACTIONS 1783 [sym_kExport]; ACTIONS 1768 [sym_kFar; sym_kNear; sym_kSafecall; sym_kAssembler;
   sym_kNostackframe; sym_kInterrupt; sym_kNoreturn; sym_kIocheck; sym_kLocal; sym_kHardfloat;
   sym_kSoftfloat; sym_kMs_abi_default; sym_kMs_abi_cdecl; sym_kSaveregisters;
   sym_kSysv_abi_default; sym_kSysv_abi_cdecl; sym_kVectorcall; sym_kVarargs; sym_kWinapi];
   ACTIONS 1786 [sym_kAlias]; ACTIONS 1758 [sym_kAsm; sym_kBegin; sym_kCase; sym_kClass;
   sym_kConst; sym_kConstructor; sym_kDestructor; sym_kExports; sym_kFor; sym_kFunction;
   sym_kGoto; sym_kIf; sym_kInherited]; ACTIONS 1016 [sym_kInline]; ACTIONS 1758 [sym_kLabel;
   sym_kNil; sym_kNot; sym_kProcedure; sym_kProperty; sym_kRaise; sym_kRepeat;
   sym_kResourcestring; sym_kString; sym_kThreadvar; sym_kTry; sym_kType; sym_kUses; sym_kVar;
   sym_kWhile; sym_kWith]].

(** State 829. *)
Definition ts_parse_table_829 : parse_row :=
  [STATE 1204 [sym__procAttribute]; STATE 15235 [sym_procAttribute]; STATE 817 [sym_procExternal;
   aux_sym_declVar_repeat2]; ACTIONS 6854 [anon_sym_SEMI; anon_sym_COMMA];
   ACTIONS 6856 [anon_sym_LBRACK]; ACTIONS 6859 [anon_sym_LPAREN];
   ACTIONS 6854 [aux_sym__literalString_token1; anon_sym_POUND];
   ACTIONS 6859 [aux_sym__literalInt_token1]; ACTIONS 6854 [aux_sym__literalInt_token2;
   aux_sym__literalInt_token3]; ACTIONS 6859 [aux_sym__literalFloat_token1];
   ACTIONS 6854 [aux_sym_ppUsesBlock_token1; aux_sym_ppUsesBlock_token2;
   aux_sym_ppUsesBlock_token3]; ACTIONS 6859 [sym_kAdd; sym_kSub]; ACTIONS 6854 [sym_kAt;
   sym_kTrue; sym_kFalse]; ACTIONS 3 [sym__space]; ACTIONS 5 [sym_ppDirective];
   ACTIONS 3 [sym_comment]; ACTIONS 6854 [sym_ppFragmentExpr; sym__literalStringMultiline;
   sym_identifier]; ACTIONS 6861 [sym_kDefault; sym_kNodefault]; ACTIONS 6864 [sym_kDispId];
   ACTIONS 6854 [sym_kGeneric; sym_kSpecialize; sym_kOperator]; ACTIONS 6867 [sym_kPublic];
   ACTIONS 6861 [sym_kStatic; sym_kVirtual; sym_kAbstract; sym_kDynamic; sym_kOverride;
   sym_kOverload; sym_kReintroduce; sym_kStdcall; sym_kCdecl; sym_kCppdecl; sym_kPascal;
   sym_kRegister; sym_kMwpascal]; ACTIONS 3438 [sym_kExternal]; ACTIONS 6870 [sym_kMessage];
   ACTIONS 6873 [sym_kDeprecated]; ACTIONS 6861 [sym_kExperimental; sym_kPlatform;
   sym_kUnimplemented; sym_kCvar]; ACTIONS 6876 [sym_kExport]; ACTIONS 6861 [sym_kFar; sym_kNear;
   sym_kSafecall; sym_kAssembler; sym_kNostackframe; sym_kInterrupt; sym_kNoreturn; sym_kIocheck;
   sym_kLocal; sym_kHardfloat; sym_kSoftfloat; sym_kMs_abi_default; sym_kMs_abi_cdecl;
   sym_kSaveregisters; sym_kSysv_abi_default; sym_kSysv_abi_cdecl; sym_kVectorcall; sym_kVarargs;
   sym_kWinapi]; ACTIONS 6879 [sym_kAlias]; ACTIONS 6854 [sym_kAsm; sym_kBegin; sym_kCase;
   sym_kClass; sym_kConst; sym_kConstructor; sym_kDestructor; sym_kExports; sym_kFor;
   sym_kFunction; sym_kGoto; sym_kIf; sym_kInherited]; ACTIONS 1016 [sym_kInline];
   ACTIONS 6854 [sym_kLabel; sym_kNil; sym_kNot; sym_kProcedure; sym_kProperty; sym_kRaise;
   sym_kRepeat; sym_kResourcestring; sym_kString; sym_kThreadvar; sym_kTry; sym_kType; sym_kUses;
   sym_kVar; sym_kWhile; sym_kWith]].

(** State 830. *)
Definition ts_parse_table_830 : parse_row :=
  [STATE 2921 [sym__ppIf]; STATE 1214 [sym__procAttributeNoExt];
   STATE 1215 [sym__procAttributesPp]; STATE 15691 [sym_procAttribute];
   STATE 777 [aux_sym__declProc_repeat1]; ACTIONS 6882 [anon_sym_SEMI; anon_sym_COMMA];
   ACTIONS 6884 [anon_sym_LBRACK]; ACTIONS 6887 [anon_sym_LPAREN];
   ACTIONS 6882 [aux_sym__literalString_token1; anon_sym_POUND];
   ACTIONS 6887 [aux_sym__literalInt_token1]; ACTIONS 6882 [aux_sym__literalInt_token2;
   aux_sym__literalInt_token3]; ACTIONS 6887 [aux_sym__literalFloat_token1];
   ACTIONS 6889 [aux_sym_ppUsesBlock_token1]; ACTIONS 6882 [aux_sym_ppUsesBlock_token2;
   aux_sym_ppUsesBlock_token3]; ACTIONS 6887 [sym_kAdd; sym_kSub]; ACTIONS 6882 [sym_kAt;
   sym_kTrue; sym_kFalse]; ACTIONS 3 [sym__space]; ACTIONS 5 [sym_ppDirective];
   ACTIONS 3 [sym_comment]; ACTIONS 6882 [sym_ppFragmentExpr; sym__literalStringMultiline;
   sym_identifier]; ACTIONS 6892 [sym_kDefault; sym_kNodefault]; ACTIONS 6895 [sym_kDispId];
   ACTIONS 6882 [sym_kGeneric; sym_kSpecialize; sym_kOperator]; ACTIONS 6898 [sym_kPublic];
   ACTIONS 6892 [sym_kStatic; sym_kVirtual; sym_kAbstract; sym_kDynamic; sym_kOverride;
   sym_kOverload; sym_kReintroduce; sym_kStdcall; sym_kCdecl; sym_kCppdecl; sym_kPascal;
   sym_kRegister; sym_kMwpascal]; ACTIONS 6901 [sym_kMessage]; ACTIONS 6904 [sym_kDeprecated];
   ACTIONS 6892 [sym_kExperimental; sym_kPlatform; sym_kUnimplemented; sym_kCvar];
   ACTIONS 6907 [sym_kExport]; ACTIONS 6892 [sym_kFar; sym_kNear; sym_kSafecall; sym_kAssembler;
   sym_kNostackframe; sym_kInterrupt; sym_kNoreturn; sym_kIocheck; sym_kLocal; sym_kHardfloat;
   sym_kSoftfloat; sym_kMs_abi_default; sym_kMs_abi_cdecl; sym_kSaveregisters;
   sym_kSysv_abi_default; sym_kSysv_abi_cdecl; sym_kVectorcall; sym_kVarargs; sym_kWinapi];
   ACTIONS 6910 [sym_kAlias]; ACTIONS 6882 [sym_kAsm; sym_kBegin; sym_kCase; sym_kClass;
   sym_kConst; sym_kConstructor; sym_kDestructor; sym_kExports; sym_kFor; sym_kFunction;
   sym_kGoto; sym_kIf; sym_kInherited]; ACTIONS 1016 [sym_kInline]; ACTIONS 6882 [sym_kLabel;
   sym_kNil; sym_kNot; sym_kProcedure; sym_kProperty; sym_kRaise; sym_kRepeat;
   sym_kResourcestring; sym_kString; sym_kThreadvar; sym_kTry; sym_kType; sym_kUses; sym_kVar;
   sym_kWhile; sym_kWith]].

(** State 831. *)
Definition ts_parse_table_831 : parse_row :=
  [STATE 1204 [sym__procAttribute]; STATE 15235 [sym_procAttribute]; STATE 700 [sym_procExternal;
   aux_sym_declVar_repeat2]; ACTIONS 6913 [anon_sym_SEMI; anon_sym_COMMA];
   ACTIONS 6915 [anon_sym_LBRACK]; ACTIONS 6918 [anon_sym_LPAREN];
   ACTIONS 6913 [aux_sym__literalString_token1; anon_sym_POUND];
   ACTIONS 6918 [aux_sym__literalInt_token1]; ACTIONS 6913 [aux_sym__literalInt_token2;
   aux_sym__literalInt_token3]; ACTIONS 6918 [aux_sym__literalFloat_token1];
   ACTIONS 6913 [aux_sym_ppUsesBlock_token1; aux_sym_ppUsesBlock_token2;
   aux_sym_ppUsesBlock_token3]; ACTIONS 6918 [sym_kAdd; sym_kSub]; ACTIONS 6913 [sym_kAt;
   sym_kTrue; sym_kFalse]; ACTIONS 3 [sym__space]; ACTIONS 5 [sym_ppDirective];
   ACTIONS 3 [sym_comment]; ACTIONS 6913 [sym_ppFragmentExpr; sym__literalStringMultiline;
   sym_identifier]; ACTIONS 6920 [sym_kDefault; sym_kNodefault]; ACTIONS 6923 [sym_kDispId];
   ACTIONS 6913 [sym_kGeneric; sym_kSpecialize; sym_kOperator]; ACTIONS 6926 [sym_kPublic];
   ACTIONS 6920 [sym_kStatic; sym_kVirtual; sym_kAbstract; sym_kDynamic; sym_kOverride;
   sym_kOverload; sym_kReintroduce; sym_kStdcall; sym_kCdecl; sym_kCppdecl; sym_kPascal;
   sym_kRegister; sym_kMwpascal]; ACTIONS 3438 [sym_kExternal]; ACTIONS 6929 [sym_kMessage];
   ACTIONS 6932 [sym_kDeprecated]; ACTIONS 6920 [sym_kExperimental; sym_kPlatform;
   sym_kUnimplemented; sym_kCvar]; ACTIONS 6935 [sym_kExport]; ACTIONS 6920 [sym_kFar; sym_kNear;
   sym_kSafecall; sym_kAssembler; sym_kNostackframe; sym_kInterrupt; sym_kNoreturn; sym_kIocheck;
   sym_kLocal; sym_kHardfloat; sym_kSoftfloat; sym_kMs_abi_default; sym_kMs_abi_cdecl;
   sym_kSaveregisters; sym_kSysv_abi_default; sym_kSysv_abi_cdecl; sym_kVectorcall; sym_kVarargs;
   sym_kWinapi]; ACTIONS 6938 [sym_kAlias]; ACTIONS 6913 [sym_kAsm; sym_kBegin; sym_kCase;
   sym_kClass; sym_kConst; sym_kConstructor; sym_kDestructor; sym_kExports; sym_kFor;
   sym_kFunction; sym_kGoto; sym_kIf; sym_kInherited]; ACTIONS 1016 [sym_kInline];
   ACTIONS 6913 [sym_kLabel; sym_kNil; sym_kNot; sym_kProcedure; sym_kProperty; sym_kRaise;
   sym_kRepeat; sym_kResourcestring; sym_kString; sym_kThreadvar; sym_kTry; sym_kType; sym_kUses;
   sym_kVar; sym_kWhile; sym_kWith]].

(** State 832. *)
Definition ts_parse_table_832 : parse_row :=
  [STATE 2921 [sym__ppIf]; STATE 1214 [sym__procAttributeNoExt];
   STATE 1215 [sym__procAttributesPp]; STATE 15691 [sym_procAttribute];
   STATE 777 [aux_sym__declProc_repeat1]; ACTIONS 1791 [anon_sym_SEMI; anon_sym_COMMA];
   ACTIONS 6941 [anon_sym_LBRACK]; ACTIONS 1796 [anon_sym_LPAREN];
   ACTIONS 1791 [aux_sym__literalString_token1; anon_sym_POUND];
   ACTIONS 1796 [aux_sym__literalInt_token1]; ACTIONS 1791 [aux_sym__literalInt_token2;
   aux_sym__literalInt_token3]; ACTIONS 1796 [aux_sym__literalFloat_token1];
   ACTIONS 1798 [aux_sym_ppUsesBlock_token1]; ACTIONS 1791 [aux_sym_ppUsesBlock_token2;
   aux_sym_ppUsesBlock_token3]; ACTIONS 1796 [sym_kAdd; sym_kSub]; ACTIONS 1791 [sym_kAt;
   sym_kTrue; sym_kFalse]; ACTIONS 3 [sym__space]; ACTIONS 5 [sym_ppDirective];
   ACTIONS 3 [sym_comment]; ACTIONS 1791 [sym_ppFragmentExpr; sym__literalStringMultiline;
   sym_identifier]; ACTIONS 1801 [sym_kDefault; sym_kNodefault]; ACTIONS 1804 [sym_kDispId];
   ACTIONS 1791 [sym_kGeneric; sym_kSpecialize; sym_kOperator]; ACTIONS 1807 [sym_kPublic];
   ACTIONS 1801 [sym_kStatic; sym_kVirtual; sym_kAbstract; sym_kDynamic; sym_kOverride;
   sym_kOverload; sym_kReintroduce; sym_kStdcall; sym_kCdecl; sym_kCppdecl; sym_kPascal;
   sym_kRegister; sym_kMwpascal]; ACTIONS 1810 [sym_kMessage]; ACTIONS 1813 [sym_kDeprecated];
   ACTIONS 1801 [sym_kExperimental; sym_kPlatform; sym_kUnimplemented; sym_kCvar];
   ACTIONS 1816 [sym_kExport]; ACTIONS 1801 [sym_kFar; sym_kNear; sym_kSafecall; sym_kAssembler;
   sym_kNostackframe; sym_kInterrupt; sym_kNoreturn; sym_kIocheck; sym_kLocal; sym_kHardfloat;
   sym_kSoftfloat; sym_kMs_abi_default; sym_kMs_abi_cdecl; sym_kSaveregisters;
   sym_kSysv_abi_default; sym_kSysv_abi_cdecl; sym_kVectorcall; sym_kVarargs; sym_kWinapi];
   ACTIONS 1819 [sym_kAlias]; ACTIONS 1791 [sym_kAsm; sym_kBegin; sym_kCase; sym_kClass;
   sym_kConst; sym_kConstructor; sym_kDestructor; sym_kExports; sym_kFor; sym_kFunction;
   sym_kGoto; sym_kIf; sym_kInherited]; ACTIONS 1016 [sym_kInline]; ACTIONS 1791 [sym_kLabel;
   sym_kNil; sym_kNot; sym_kProcedure; sym_kProperty; sym_kRaise; sym_kRepeat;
   sym_kResourcestring; sym_kString; sym_kThreadvar; sym_kTry; sym_kType; sym_kUses; sym_kVar;
   sym_kWhile; sym_kWith]].

(** State 833. *)
Definition ts_parse_table_833 : parse_row :=
  [STATE 1204 [sym__procAttribute]; STATE 15235 [sym_procAttribute]; STATE 712 [sym_procExternal;
   aux_sym_declVar_repeat2]; ACTIONS 6944 [anon_sym_SEMI; anon_sym_COMMA];
   ACTIONS 6946 [anon_sym_LBRACK]; ACTIONS 6949 [anon_sym_LPAREN];
   ACTIONS 6944 [aux_sym__literalString_token1; anon_sym_POUND];
   ACTIONS 6949 [aux_sym__literalInt_token1]; ACTIONS 6944 [aux_sym__literalInt_token2;
   aux_sym__literalInt_token3]; ACTIONS 6949 [aux_sym__literalFloat_token1];
   ACTIONS 6944 [aux_sym_ppUsesBlock_token1; aux_sym_ppUsesBlock_token2;
   aux_sym_ppUsesBlock_token3]; ACTIONS 6949 [sym_kAdd; sym_kSub]; ACTIONS 6944 [sym_kAt;
   sym_kTrue; sym_kFalse]; ACTIONS 3 [sym__space]; ACTIONS 5 [sym_ppDirective];
   ACTIONS 3 [sym_comment]; ACTIONS 6944 [sym_ppFragmentExpr; sym__literalStringMultiline;
   sym_identifier]; ACTIONS 6951 [sym_kDefault; sym_kNodefault]; ACTIONS 6954 [sym_kDispId];
   ACTIONS 6944 [sym_kGeneric; sym_kSpecialize; sym_kOperator]; ACTIONS 6957 [sym_kPublic];
   ACTIONS 6951 [sym_kStatic; sym_kVirtual; sym_kAbstract; sym_kDynamic; sym_kOverride;
   sym_kOverload; sym_kReintroduce; sym_kStdcall; sym_kCdecl; sym_kCppdecl; sym_kPascal;
   sym_kRegister; sym_kMwpascal]; ACTIONS 3438 [sym_kExternal]; ACTIONS 6960 [sym_kMessage];
   ACTIONS 6963 [sym_kDeprecated]; ACTIONS 6951 [sym_kExperimental; sym_kPlatform;
   sym_kUnimplemented; sym_kCvar]; ACTIONS 6966 [sym_kExport]; ACTIONS 6951 [sym_kFar; sym_kNear;
   sym_kSafecall; sym_kAssembler; sym_kNostackframe; sym_kInterrupt; sym_kNoreturn; sym_kIocheck;
   sym_kLocal; sym_kHardfloat; sym_kSoftfloat; sym_kMs_abi_default; sym_kMs_abi_cdecl;
   sym_kSaveregisters; sym_kSysv_abi_default; sym_kSysv_abi_cdecl; sym_kVectorcall; sym_kVarargs;
   sym_kWinapi]; ACTIONS 6969 [sym_kAlias]; ACTIONS 6944 [sym_kAsm; sym_kBegin; sym_kCase;
   sym_kClass; sym_kConst; sym_kConstructor; sym_kDestructor; sym_kExports; sym_kFor;
   sym_kFunction; sym_kGoto; sym_kIf; sym_kInherited]; ACTIONS 1016 [sym_kInline];
   ACTIONS 6944 [sym_kLabel; sym_kNil; sym_kNot; sym_kProcedure; sym_kProperty; sym_kRaise;
   sym_kRepeat; sym_kResourcestring; sym_kString; sym_kThreadvar; sym_kTry; sym_kType; sym_kUses;
   sym_kVar; sym_kWhile; sym_kWith]].

(** State 834. *)
Definition ts_parse_table_834 : parse_row :=
  [STATE 1204 [sym__procAttribute]; STATE 15235 [sym_procAttribute]; STATE 735 [sym_procExternal;
   aux_sym_declVar_repeat2]; ACTIONS 6972 [anon_sym_SEMI; anon_sym_COMMA];
   ACTIONS 6974 [anon_sym_LBRACK]; ACTIONS 6977 [anon_sym_LPAREN];
   ACTIONS 6972 [aux_sym__literalString_token1; anon_sym_POUND];
   ACTIONS 6977 [aux_sym__literalInt_token1]; ACTIONS 6972 [aux_sym__literalInt_token2;
   aux_sym__literalInt_token3]; ACTIONS 6977 [aux_sym__literalFloat_token1];
   ACTIONS 6972 [aux_sym_ppUsesBlock_token1; aux_sym_ppUsesBlock_token2;
   aux_sym_ppUsesBlock_token3]; ACTIONS 6977 [sym_kAdd; sym_kSub]; ACTIONS 6972 [sym_kAt;
   sym_kTrue; sym_kFalse]; ACTIONS 3 [sym__space]; ACTIONS 5 [sym_ppDirective];
   ACTIONS 3 [sym_comment]; ACTIONS 6972 [sym_ppFragmentExpr; sym__literalStringMultiline;
   sym_identifier]; ACTIONS 6979 [sym_kDefault; sym_kNodefault]; ACTIONS 6982 [sym_kDispId];
   ACTIONS 6972 [sym_kGeneric; sym_kSpecialize; sym_kOperator]; ACTIONS 6985 [sym_kPublic];
   ACTIONS 6979 [sym_kStatic; sym_kVirtual; sym_kAbstract; sym_kDynamic; sym_kOverride;
   sym_kOverload; sym_kReintroduce; sym_kStdcall; sym_kCdecl; sym_kCppdecl; sym_kPascal;
   sym_kRegister; sym_kMwpascal]; ACTIONS 3438 [sym_kExternal]; ACTIONS 6988 [sym_kMessage];
   ACTIONS 6991 [sym_kDeprecated]; ACTIONS 6979 [sym_kExperimental; sym_kPlatform;
   sym_kUnimplemented; sym_kCvar]; ACTIONS 6994 [sym_kExport]; ACTIONS 6979 [sym_kFar; sym_kNear;
   sym_kSafecall; sym_kAssembler; sym_kNostackframe; sym_kInterrupt; sym_kNoreturn; sym_kIocheck;
   sym_kLocal; sym_kHardfloat; sym_kSoftfloat; sym_kMs_abi_default; sym_kMs_abi_cdecl;
   sym_kSaveregisters; sym_kSysv_abi_default; sym_kSysv_abi_cdecl; sym_kVectorcall; sym_kVarargs;
   sym_kWinapi]; ACTIONS 6997 [sym_kAlias]; ACTIONS 6972 [sym_kAsm; sym_kBegin; sym_kCase;
   sym_kClass; sym_kConst; sym_kConstructor; sym_kDestructor; sym_kExports; sym_kFor;
   sym_kFunction; sym_kGoto; sym_kIf; sym_kInherited]; ACTIONS 1016 [sym_kInline];
   ACTIONS 6972 [sym_kLabel; sym_kNil; sym_kNot; sym_kProcedure; sym_kProperty; sym_kRaise;
   sym_kRepeat; sym_kResourcestring; sym_kString; sym_kThreadvar; sym_kTry; sym_kType; sym_kUses;
   sym_kVar; sym_kWhile; sym_kWith]].

(** State 835. *)
Definition ts_parse_table_835 : parse_row :=
  [STATE 2921 [sym__ppIf]; STATE 1214 [sym__procAttributeNoExt];
   STATE 1215 [sym__procAttributesPp]; STATE 15691 [sym_procAttribute];
   STATE 757 [aux_sym__declProc_repeat1]; ACTIONS 7000 [anon_sym_SEMI; anon_sym_COMMA];
   ACTIONS 7002 [anon_sym_LBRACK]; ACTIONS 7005 [anon_sym_LPAREN];
   ACTIONS 7000 [aux_sym__literalString_token1; anon_sym_POUND];
   ACTIONS 7005 [aux_sym__literalInt_token1]; ACTIONS 7000 [aux_sym__literalInt_token2;
   aux_sym__literalInt_token3]; ACTIONS 7005 [aux_sym__literalFloat_token1];
   ACTIONS 7007 [aux_sym_ppUsesBlock_token1]; ACTIONS 7000 [aux_sym_ppUsesBlock_token2;
   aux_sym_ppUsesBlock_token3]; ACTIONS 7005 [sym_kAdd; sym_kSub]; ACTIONS 7000 [sym_kAt;
   sym_kTrue; sym_kFalse]; ACTIONS 3 [sym__space]; ACTIONS 5 [sym_ppDirective];
   ACTIONS 3 [sym_comment]; ACTIONS 7000 [sym_ppFragmentExpr; sym__literalStringMultiline;
   sym_identifier]; ACTIONS 7010 [sym_kDefault; sym_kNodefault]; ACTIONS 7013 [sym_kDispId];
   ACTIONS 7000 [sym_kGeneric; sym_kSpecialize; sym_kOperator]; ACTIONS 7016 [sym_kPublic];
   ACTIONS 7010 [sym_kStatic; sym_kVirtual; sym_kAbstract; sym_kDynamic; sym_kOverride;
   sym_kOverload; sym_kReintroduce; sym_kStdcall; sym_kCdecl; sym_kCppdecl; sym_kPascal;
   sym_kRegister; sym_kMwpascal]; ACTIONS 7019 [sym_kMessage]; ACTIONS 7022 [sym_kDeprecated];
   ACTIONS 7010 [sym_kExperimental; sym_kPlatform; sym_kUnimplemented; sym_kCvar];
   ACTIONS 7025 [sym_kExport]; ACTIONS 7010 [sym_kFar; sym_kNear; sym_kSafecall; sym_kAssembler;
   sym_kNostackframe; sym_kInterrupt; sym_kNoreturn; sym_kIocheck; sym_kLocal; sym_kHardfloat;
   sym_kSoftfloat; sym_kMs_abi_default; sym_kMs_abi_cdecl; sym_kSaveregisters;
   sym_kSysv_abi_default; sym_kSysv_abi_cdecl; sym_kVectorcall; sym_kVarargs; sym_kWinapi];
   ACTIONS 7028 [sym_kAlias]; ACTIONS 7000 [sym_kAsm; sym_kBegin; sym_kCase; sym_kClass;
   sym_kConst; sym_kConstructor; sym_kDestructor; sym_kExports; sym_kFor; sym_kFunction;
   sym_kGoto; sym_kIf; sym_kInherited]; ACTIONS 1016 [sym_kInline]; ACTIONS 7000 [sym_kLabel;
   sym_kNil; sym_kNot; sym_kProcedure; sym_kProperty; sym_kRaise; sym_kRepeat;
   sym_kResourcestring; sym_kString; sym_kThreadvar; sym_kTry; sym_kType; sym_kUses; sym_kVar;
   sym_kWhile; sym_kWith]].

(** State 836. *)
Definition ts_parse_table_836 : parse_row :=
  [STATE 1204 [sym__procAttribute]; STATE 15235 [sym_procAttribute]; STATE 817 [sym_procExternal;
   aux_sym_declVar_repeat2]; ACTIONS 7031 [anon_sym_SEMI; anon_sym_COMMA];
   ACTIONS 7033 [anon_sym_LBRACK]; ACTIONS 7036 [anon_sym_LPAREN];
   ACTIONS 7031 [aux_sym__literalString_token1; anon_sym_POUND];
   ACTIONS 7036 [aux_sym__literalInt_token1]; ACTIONS 7031 [aux_sym__literalInt_token2;
   aux_sym__literalInt_token3]; ACTIONS 7036 [aux_sym__literalFloat_token1];
   ACTIONS 7031 [aux_sym_ppUsesBlock_token1; aux_sym_ppUsesBlock_token2;
   aux_sym_ppUsesBlock_token3]; ACTIONS 7036 [sym_kAdd; sym_kSub]; ACTIONS 7031 [sym_kAt;
   sym_kTrue; sym_kFalse]; ACTIONS 3 [sym__space]; ACTIONS 5 [sym_ppDirective];
   ACTIONS 3 [sym_comment]; ACTIONS 7031 [sym_ppFragmentExpr; sym__literalStringMultiline;
   sym_identifier]; ACTIONS 7038 [sym_kDefault; sym_kNodefault]; ACTIONS 7041 [sym_kDispId];
   ACTIONS 7031 [sym_kGeneric; sym_kSpecialize; sym_kOperator]; ACTIONS 7044 [sym_kPublic];
   ACTIONS 7038 [sym_kStatic; sym_kVirtual; sym_kAbstract; sym_kDynamic; sym_kOverride;
   sym_kOverload; sym_kReintroduce; sym_kStdcall; sym_kCdecl; sym_kCppdecl; sym_kPascal;
   sym_kRegister; sym_kMwpascal]; ACTIONS 3438 [sym_kExternal]; ACTIONS 7047 [sym_kMessage];
   ACTIONS 7050 [sym_kDeprecated]; ACTIONS 7038 [sym_kExperimental; sym_kPlatform;
   sym_kUnimplemented; sym_kCvar]; ACTIONS 7053 [sym_kExport]; ACTIONS 7038 [sym_kFar; sym_kNear;
   sym_kSafecall; sym_kAssembler; sym_kNostackframe; sym_kInterrupt; sym_kNoreturn; sym_kIocheck;
   sym_kLocal; sym_kHardfloat; sym_kSoftfloat; sym_kMs_abi_default; sym_kMs_abi_cdecl;
   sym_kSaveregisters; sym_kSysv_abi_default; sym_kSysv_abi_cdecl; sym_kVectorcall; sym_kVarargs;
   sym_kWinapi]; ACTIONS 7056 [sym_kAlias]; ACTIONS 7031 [sym_kAsm; sym_kBegin; sym_kCase;
   sym_kClass; sym_kConst; sym_kConstructor; sym_kDestructor; sym_kExports; sym_kFor;
   sym_kFunction; sym_kGoto; sym_kIf; sym_kInherited]; ACTIONS 1016 [sym_kInline];
   ACTIONS 7031 [sym_kLabel; sym_kNil; sym_kNot; sym_kProcedure; sym_kProperty; sym_kRaise;
   sym_kRepeat; sym_kResourcestring; sym_kString; sym_kThreadvar; sym_kTry; sym_kType; sym_kUses;
   sym_kVar; sym_kWhile; sym_kWith]].

(** State 837. *)
Definition ts_parse_table_837 : parse_row :=
  [STATE 2921 [sym__ppIf]; STATE 1214 [sym__procAttributeNoExt];
   STATE 1215 [sym__procAttributesPp]; STATE 15691 [sym_procAttribute];
   STATE 699 [aux_sym__declProc_repeat1]; ACTIONS 7059 [anon_sym_SEMI; anon_sym_COMMA];
   ACTIONS 7061 [anon_sym_LBRACK]; ACTIONS 7064 [anon_sym_LPAREN];
   ACTIONS 7059 [aux_sym__literalString_token1; anon_sym_POUND];
   ACTIONS 7064 [aux_sym__literalInt_token1]; ACTIONS 7059 [aux_sym__literalInt_token2;
   aux_sym__literalInt_token3]; ACTIONS 7064 [aux_sym__literalFloat_token1];
   ACTIONS 7066 [aux_sym_ppUsesBlock_token1]; ACTIONS 7059 [aux_sym_ppUsesBlock_token2;
   aux_sym_ppUsesBlock_token3]; ACTIONS 7064 [sym_kAdd; sym_kSub]; ACTIONS 7059 [sym_kAt;
   sym_kTrue; sym_kFalse]; ACTIONS 3 [sym__space]; ACTIONS 5 [sym_ppDirective];
   ACTIONS 3 [sym_comment]; ACTIONS 7059 [sym_ppFragmentExpr; sym__literalStringMultiline;
   sym_identifier]; ACTIONS 7069 [sym_kDefault; sym_kNodefault]; ACTIONS 7072 [sym_kDispId];
   ACTIONS 7059 [sym_kGeneric; sym_kSpecialize; sym_kOperator]; ACTIONS 7075 [sym_kPublic];
   ACTIONS 7069 [sym_kStatic; sym_kVirtual; sym_kAbstract; sym_kDynamic; sym_kOverride;
   sym_kOverload; sym_kReintroduce; sym_kStdcall; sym_kCdecl; sym_kCppdecl; sym_kPascal;
   sym_kRegister; sym_kMwpascal]; ACTIONS 7078 [sym_kMessage]; ACTIONS 7081 [sym_kDeprecated];
   ACTIONS 7069 [sym_kExperimental; sym_kPlatform; sym_kUnimplemented; sym_kCvar];
   ACTIONS 7084 [sym_kExport]; ACTIONS 7069 [sym_kFar; sym_kNear; sym_kSafecall; sym_kAssembler;
   sym_kNostackframe; sym_kInterrupt; sym_kNoreturn; sym_kIocheck; sym_kLocal; sym_kHardfloat;
   sym_kSoftfloat; sym_kMs_abi_default; sym_kMs_abi_cdecl; sym_kSaveregisters;
   sym_kSysv_abi_default; sym_kSysv_abi_cdecl; sym_kVectorcall; sym_kVarargs; sym_kWinapi];
   ACTIONS 7087 [sym_kAlias]; ACTIONS 7059 [sym_kAsm; sym_kBegin; sym_kCase; sym_kClass;
   sym_kConst; sym_kConstructor; sym_kDestructor; sym_kExports; sym_kFor; sym_kFunction;
   sym_kGoto; sym_kIf; sym_kInherited]; ACTIONS 1016 [sym_kInline]; ACTIONS 7059 [sym_kLabel;
   sym_kNil; sym_kNot; sym_kProcedure; sym_kProperty; sym_kRaise; sym_kRepeat;
   sym_kResourcestring; sym_kString; sym_kThreadvar; sym_kTry; sym_kType; sym_kUses; sym_kVar;
   sym_kWhile; sym_kWith]].

(** State 838. *)
Definition ts_parse_table_838 : parse_row :=
  [STATE 1204 [sym__procAttribute]; STATE 15235 [sym_procAttribute]; STATE 753 [sym_procExternal;
   aux_sym_declVar_repeat2]; ACTIONS 7090 [anon_sym_SEMI; anon_sym_COMMA];
   ACTIONS 7092 [anon_sym_LBRACK]; ACTIONS 7095 [anon_sym_LPAREN];
   ACTIONS 7090 [aux_sym__literalString_token1; anon_sym_POUND];
   ACTIONS 7095 [aux_sym__literalInt_token1]; ACTIONS 7090 [aux_sym__literalInt_token2;
   aux_sym__literalInt_token3]; ACTIONS 7095 [aux_sym__literalFloat_token1];
   ACTIONS 7090 [aux_sym_ppUsesBlock_token1; aux_sym_ppUsesBlock_token2;
   aux_sym_ppUsesBlock_token3]; ACTIONS 7095 [sym_kAdd; sym_kSub]; ACTIONS 7090 [sym_kAt;
   sym_kTrue; sym_kFalse]; ACTIONS 3 [sym__space]; ACTIONS 5 [sym_ppDirective];
   ACTIONS 3 [sym_comment]; ACTIONS 7090 [sym_ppFragmentExpr; sym__literalStringMultiline;
   sym_identifier]; ACTIONS 7097 [sym_kDefault; sym_kNodefault]; ACTIONS 7100 [sym_kDispId];
   ACTIONS 7090 [sym_kGeneric; sym_kSpecialize; sym_kOperator]; ACTIONS 7103 [sym_kPublic];
   ACTIONS 7097 [sym_kStatic; sym_kVirtual; sym_kAbstract; sym_kDynamic; sym_kOverride;
   sym_kOverload; sym_kReintroduce; sym_kStdcall; sym_kCdecl; sym_kCppdecl; sym_kPascal;
   sym_kRegister; sym_kMwpascal]; ACTIONS 3438 [sym_kExternal]; ACTIONS 7106 [sym_kMessage];
   ACTIONS 7109 [sym_kDeprecated]; ACTIONS 7097 [sym_kExperimental; sym_kPlatform;
   sym_kUnimplemented; sym_kCvar]; ACTIONS 7112 [sym_kExport]; ACTIONS 7097 [sym_kFar; sym_kNear;
   sym_kSafecall; sym_kAssembler; sym_kNostackframe; sym_kInterrupt; sym_kNoreturn; sym_kIocheck;
   sym_kLocal; sym_kHardfloat; sym_kSoftfloat; sym_kMs_abi_default; sym_kMs_abi_cdecl;
   sym_kSaveregisters; sym_kSysv_abi_default; sym_kSysv_abi_cdecl; sym_kVectorcall; sym_kVarargs;
   sym_kWinapi]; ACTIONS 7115 [sym_kAlias]; ACTIONS 7090 [sym_kAsm; sym_kBegin; sym_kCase;
   sym_kClass; sym_kConst; sym_kConstructor; sym_kDestructor; sym_kExports; sym_kFor;
   sym_kFunction; sym_kGoto; sym_kIf; sym_kInherited]; ACTIONS 1016 [sym_kInline];
   ACTIONS 7090 [sym_kLabel; sym_kNil; sym_kNot; sym_kProcedure; sym_kProperty; sym_kRaise;
   sym_kRepeat; sym_kResourcestring; sym_kString; sym_kThreadvar; sym_kTry; sym_kType; sym_kUses;
   sym_kVar; sym_kWhile; sym_kWith]].

(** State 839. *)
Definition ts_parse_table_839 : parse_row :=
  [STATE 5784 [sym_if]; STATE 5735 [sym_ifElse; sym_while; sym_repeat; sym_for; sym_foreach;
   sym_try; sym_case; sym_block; sym_asm; sym_with; sym_raise; sym_statement; sym_goto;
   sym_labeledStatement; sym__statement]; STATE 12046 [sym_ifTr; sym_ifElseTr; sym_whileTr;
   sym_repeatTr; sym_forTr; sym_foreachTr; sym_tryTr; sym_caseTr]; STATE 11959 [sym_blockTr];
   STATE 12046 [sym_asmTr; sym_withTr; sym_raiseTr; sym_statementTr; sym_gotoTr;
   sym_labeledStatementTr; sym__statementTr]; STATE 11608 [sym_assignment];
   STATE 11896 [sym_varAssignDef]; STATE 11608 [sym_varDef; sym_constDef]; STATE 859 [sym_label];
   STATE 7327 [sym__expr; sym_exprConditional]; STATE 7013 [sym__ref; sym_lambda; sym_inherited;
   sym_exprDot; sym_exprDeref; sym_exprAs; sym_exprTpl; sym_exprSubscript; sym_exprCall];
   STATE 7327 [sym_exprBinary; sym_exprUnary]; STATE 7013 [sym_exprParens; sym_exprBrackets;
   sym__literal; sym_literalString]; STATE 6066 [sym__literalString; sym_literalChar];
   STATE 7013 [sym_literalNumber]; STATE 7084 [sym__literalInt; sym__literalFloat];
   STATE 6066 [aux_sym_literalString_repeat1]; ACTIONS 3270 [anon_sym_SEMI];
   ACTIONS 609 [anon_sym_LBRACK]; ACTIONS 611 [anon_sym_LPAREN];
   ACTIONS 613 [aux_sym__literalString_token1]; ACTIONS 615 [anon_sym_POUND];
   ACTIONS 617 [aux_sym__literalInt_token1]; ACTIONS 619 [aux_sym__literalInt_token2;
   aux_sym__literalInt_token3]; ACTIONS 617 [aux_sym__literalFloat_token1];
   ACTIONS 621 [sym_kAdd; sym_kSub]; ACTIONS 623 [sym_kAt]; ACTIONS 625 [sym_kTrue; sym_kFalse];
   ACTIONS 3783 [sym_labelNumber]; ACTIONS 3 [sym__space]; ACTIONS 5 [sym_ppDirective];
   ACTIONS 3 [sym_comment]; ACTIONS 625 [sym_ppFragmentExpr];
   ACTIONS 613 [sym__literalStringMultiline]; ACTIONS 3785 [sym_identifier];
   ACTIONS 631 [sym_kSpecialize]; ACTIONS 633 [sym_kAsm]; ACTIONS 635 [sym_kBegin];
   ACTIONS 637 [sym_kCase]; ACTIONS 639 [sym_kConst]; ACTIONS 3272 [sym_kEnd; sym_kFinalization];
   ACTIONS 643 [sym_kFor]; ACTIONS 645 [sym_kFunction]; ACTIONS 647 [sym_kGoto];
   ACTIONS 649 [sym_kIf]; ACTIONS 3272 [sym_kImplementation]; ACTIONS 651 [sym_kInherited];
   ACTIONS 3272 [sym_kInitialization; sym_kInterface]; ACTIONS 625 [sym_kNil];
   ACTIONS 623 [sym_kNot]; ACTIONS 645 [sym_kProcedure]; ACTIONS 653 [sym_kRaise];
   ACTIONS 655 [sym_kRepeat]; ACTIONS 657 [sym_kString]; ACTIONS 659 [sym_kTry];
   ACTIONS 661 [sym_kVar]; ACTIONS 663 [sym_kWhile]; ACTIONS 665 [sym_kWith]].

(** State 840. *)
Definition ts_parse_table_840 : parse_row :=
  [STATE 1204 [sym__procAttribute]; STATE 15235 [sym_procAttribute]; STATE 817 [sym_procExternal;
   aux_sym_declVar_repeat2]; ACTIONS 7118 [anon_sym_SEMI; anon_sym_COMMA];
   ACTIONS 7120 [anon_sym_LBRACK]; ACTIONS 7123 [anon_sym_LPAREN];
   ACTIONS 7118 [aux_sym__literalString_token1; anon_sym_POUND];
   ACTIONS 7123 [aux_sym__literalInt_token1]; ACTIONS 7118 [aux_sym__literalInt_token2;
   aux_sym__literalInt_token3]; ACTIONS 7123 [aux_sym__literalFloat_token1];
   ACTIONS 7118 [aux_sym_ppUsesBlock_token1; aux_sym_ppUsesBlock_token2;
   aux_sym_ppUsesBlock_token3]; ACTIONS 7123 [sym_kAdd; sym_kSub]; ACTIONS 7118 [sym_kAt;
   sym_kTrue; sym_kFalse]; ACTIONS 3 [sym__space]; ACTIONS 5 [sym_ppDirective];
   ACTIONS 3 [sym_comment]; ACTIONS 7118 [sym_ppFragmentExpr; sym__literalStringMultiline;
   sym_identifier]; ACTIONS 7125 [sym_kDefault; sym_kNodefault]; ACTIONS 7128 [sym_kDispId];
   ACTIONS 7118 [sym_kGeneric; sym_kSpecialize; sym_kOperator]; ACTIONS 7131 [sym_kPublic];
   ACTIONS 7125 [sym_kStatic; sym_kVirtual; sym_kAbstract; sym_kDynamic; sym_kOverride;
   sym_kOverload; sym_kReintroduce; sym_kStdcall; sym_kCdecl; sym_kCppdecl; sym_kPascal;
   sym_kRegister; sym_kMwpascal]; ACTIONS 3438 [sym_kExternal]; ACTIONS 7134 [sym_kMessage];
   ACTIONS 7137 [sym_kDeprecated]; ACTIONS 7125 [sym_kExperimental; sym_kPlatform;
   sym_kUnimplemented; sym_kCvar]; ACTIONS 7140 [sym_kExport]; ACTIONS 7125 [sym_kFar; sym_kNear;
   sym_kSafecall; sym_kAssembler; sym_kNostackframe; sym_kInterrupt; sym_kNoreturn; sym_kIocheck;
   sym_kLocal; sym_kHardfloat; sym_kSoftfloat; sym_kMs_abi_default; sym_kMs_abi_cdecl;
   sym_kSaveregisters; sym_kSysv_abi_default; sym_kSysv_abi_cdecl; sym_kVectorcall; sym_kVarargs;
   sym_kWinapi]; ACTIONS 7143 [sym_kAlias]; ACTIONS 7118 [sym_kAsm; sym_kBegin; sym_kCase;
   sym_kClass; sym_kConst; sym_kConstructor; sym_kDestructor; sym_kExports; sym_kFor;
   sym_kFunction; sym_kGoto; sym_kIf; sym_kInherited]; ACTIONS 1016 [sym_kInline];
   ACTIONS 7118 [sym_kLabel; sym_kNil; sym_kNot; sym_kProcedure; sym_kProperty; sym_kRaise;
   sym_kRepeat; sym_kResourcestring; sym_kString; sym_kThreadvar; sym_kTry; sym_kType; sym_kUses;
   sym_kVar; sym_kWhile; sym_kWith]].

(** State 841. *)
Definition ts_parse_table_841 : parse_row :=
  [STATE 2921 [sym__ppIf]; STATE 1214 [sym__procAttributeNoExt];
   STATE 1215 [sym__procAttributesPp]; STATE 15691 [sym_procAttribute];
   STATE 777 [aux_sym__declProc_repeat1]; ACTIONS 7146 [anon_sym_SEMI; anon_sym_COMMA];
   ACTIONS 7148 [anon_sym_LBRACK]; ACTIONS 7151 [anon_sym_LPAREN];
   ACTIONS 7146 [aux_sym__literalString_token1; anon_sym_POUND];
   ACTIONS 7151 [aux_sym__literalInt_token1]; ACTIONS 7146 [aux_sym__literalInt_token2;
   aux_sym__literalInt_token3]; ACTIONS 7151 [aux_sym__literalFloat_token1];
   ACTIONS 7153 [aux_sym_ppUsesBlock_token1]; ACTIONS 7146 [aux_sym_ppUsesBlock_token2;
   aux_sym_ppUsesBlock_token3]; ACTIONS 7151 [sym_kAdd; sym_kSub]; ACTIONS 7146 [sym_kAt;
   sym_kTrue; sym_kFalse]; ACTIONS 3 [sym__space]; ACTIONS 5 [sym_ppDirective];
   ACTIONS 3 [sym_comment]; ACTIONS 7146 [sym_ppFragmentExpr; sym__literalStringMultiline;
   sym_identifier]; ACTIONS 7156 [sym_kDefault; sym_kNodefault]; ACTIONS 7159 [sym_kDispId];
   ACTIONS 7146 [sym_kGeneric; sym_kSpecialize; sym_kOperator]; ACTIONS 7162 [sym_kPublic];
   ACTIONS 7156 [sym_kStatic; sym_kVirtual; sym_kAbstract; sym_kDynamic; sym_kOverride;
   sym_kOverload; sym_kReintroduce; sym_kStdcall; sym_kCdecl; sym_kCppdecl; sym_kPascal;
   sym_kRegister; sym_kMwpascal]; ACTIONS 7165 [sym_kMessage]; ACTIONS 7168 [sym_kDeprecated];
   ACTIONS 7156 [sym_kExperimental; sym_kPlatform; sym_kUnimplemented; sym_kCvar];
   ACTIONS 7171 [sym_kExport]; ACTIONS 7156 [sym_kFar; sym_kNear; sym_kSafecall; sym_kAssembler;
   sym_kNostackframe; sym_kInterrupt; sym_kNoreturn; sym_kIocheck; sym_kLocal; sym_kHardfloat;
   sym_kSoftfloat; sym_kMs_abi_default; sym_kMs_abi_cdecl; sym_kSaveregisters;
   sym_kSysv_abi_default; sym_kSysv_abi_cdecl; sym_kVectorcall; sym_kVarargs; sym_kWinapi];
   ACTIONS 7174 [sym_kAlias]; ACTIONS 7146 [sym_kAsm; sym_kBegin; sym_kCase; sym_kClass;
   sym_kConst; sym_kConstructor; sym_kDestructor; sym_kExports; sym_kFor; sym_kFunction;
   sym_kGoto; sym_kIf; sym_kInherited]; ACTIONS 1016 [sym_kInline]; ACTIONS 7146 [sym_kLabel;
   sym_kNil; sym_kNot; sym_kProcedure; sym_kProperty; sym_kRaise; sym_kRepeat;
   sym_kResourcestring; sym_kString; sym_kThreadvar; sym_kTry; sym_kType; sym_kUses; sym_kVar;
   sym_kWhile; sym_kWith]].

(** State 842. *)
Definition ts_parse_table_842 : parse_row :=
  [STATE 1204 [sym__procAttribute]; STATE 15235 [sym_procAttribute]; STATE 773 [sym_procExternal;
   aux_sym_declVar_repeat2]; ACTIONS 7177 [anon_sym_SEMI; anon_sym_COMMA];
   ACTIONS 7179 [anon_sym_LBRACK]; ACTIONS 7182 [anon_sym_LPAREN];
   ACTIONS 7177 [aux_sym__literalString_token1; anon_sym_POUND];
   ACTIONS 7182 [aux_sym__literalInt_token1]; ACTIONS 7177 [aux_sym__literalInt_token2;
   aux_sym__literalInt_token3]; ACTIONS 7182 [aux_sym__literalFloat_token1];
   ACTIONS 7177 [aux_sym_ppUsesBlock_token1; aux_sym_ppUsesBlock_token2;
   aux_sym_ppUsesBlock_token3]; ACTIONS 7182 [sym_kAdd; sym_kSub]; ACTIONS 7177 [sym_kAt;
   sym_kTrue; sym_kFalse]; ACTIONS 3 [sym__space]; ACTIONS 5 [sym_ppDirective];
   ACTIONS 3 [sym_comment]; ACTIONS 7177 [sym_ppFragmentExpr; sym__literalStringMultiline;
   sym_identifier]; ACTIONS 7184 [sym_kDefault; sym_kNodefault]; ACTIONS 7187 [sym_kDispId];
   ACTIONS 7177 [sym_kGeneric; sym_kSpecialize; sym_kOperator]; ACTIONS 7190 [sym_kPublic];
   ACTIONS 7184 [sym_kStatic; sym_kVirtual; sym_kAbstract; sym_kDynamic; sym_kOverride;
   sym_kOverload; sym_kReintroduce; sym_kStdcall; sym_kCdecl; sym_kCppdecl; sym_kPascal;
   sym_kRegister; sym_kMwpascal]; ACTIONS 3438 [sym_kExternal]; ACTIONS 7193 [sym_kMessage];
   ACTIONS 7196 [sym_kDeprecated]; ACTIONS 7184 [sym_kExperimental; sym_kPlatform;
   sym_kUnimplemented; sym_kCvar]; ACTIONS 7199 [sym_kExport]; ACTIONS 7184 [sym_kFar; sym_kNear;
   sym_kSafecall; sym_kAssembler; sym_kNostackframe; sym_kInterrupt; sym_kNoreturn; sym_kIocheck;
   sym_kLocal; sym_kHardfloat; sym_kSoftfloat; sym_kMs_abi_default; sym_kMs_abi_cdecl;
   sym_kSaveregisters; sym_kSysv_abi_default; sym_kSysv_abi_cdecl; sym_kVectorcall; sym_kVarargs;
   sym_kWinapi]; ACTIONS 7202 [sym_kAlias]; ACTIONS 7177 [sym_kAsm; sym_kBegin; sym_kCase;
   sym_kClass; sym_kConst; sym_kConstructor; sym_kDestructor; sym_kExports; sym_kFor;
   sym_kFunction; sym_kGoto; sym_kIf; sym_kInherited]; ACTIONS 1016 [sym_kInline];
   ACTIONS 7177 [sym_kLabel; sym_kNil; sym_kNot; sym_kProcedure; sym_kProperty; sym_kRaise;
   sym_kRepeat; sym_kResourcestring; sym_kString; sym_kThreadvar; sym_kTry; sym_kType; sym_kUses;
   sym_kVar; sym_kWhile; sym_kWith]].

(** State 843. *)
Definition ts_parse_table_843 : parse_row :=
  [STATE 2921 [sym__ppIf]; STATE 1214 [sym__procAttributeNoExt];
   STATE 1215 [sym__procAttributesPp]; STATE 15691 [sym_procAttribute];
   STATE 704 [aux_sym__declProc_repeat1]; ACTIONS 7205 [anon_sym_SEMI; anon_sym_COMMA];
   ACTIONS 7207 [anon_sym_LBRACK]; ACTIONS 7210 [anon_sym_LPAREN];
   ACTIONS 7205 [aux_sym__literalString_token1; anon_sym_POUND];
   ACTIONS 7210 [aux_sym__literalInt_token1]; ACTIONS 7205 [aux_sym__literalInt_token2;
   aux_sym__literalInt_token3]; ACTIONS 7210 [aux_sym__literalFloat_token1];
   ACTIONS 7212 [aux_sym_ppUsesBlock_token1]; ACTIONS 7205 [aux_sym_ppUsesBlock_token2;
   aux_sym_ppUsesBlock_token3]; ACTIONS 7210 [sym_kAdd; sym_kSub]; ACTIONS 7205 [sym_kAt;
   sym_kTrue; sym_kFalse]; ACTIONS 3 [sym__space]; ACTIONS 5 [sym_ppDirective];
   ACTIONS 3 [sym_comment]; ACTIONS 7205 [sym_ppFragmentExpr; sym__literalStringMultiline;
   sym_identifier]; ACTIONS 7215 [sym_kDefault; sym_kNodefault]; ACTIONS 7218 [sym_kDispId];
   ACTIONS 7205 [sym_kGeneric; sym_kSpecialize; sym_kOperator]; ACTIONS 7221 [sym_kPublic];
   ACTIONS 7215 [sym_kStatic; sym_kVirtual; sym_kAbstract; sym_kDynamic; sym_kOverride;
   sym_kOverload; sym_kReintroduce; sym_kStdcall; sym_kCdecl; sym_kCppdecl; sym_kPascal;
   sym_kRegister; sym_kMwpascal]; ACTIONS 7224 [sym_kMessage]; ACTIONS 7227 [sym_kDeprecated];
   ACTIONS 7215 [sym_kExperimental; sym_kPlatform; sym_kUnimplemented; sym_kCvar];
   ACTIONS 7230 [sym_kExport]; ACTIONS 7215 [sym_kFar; sym_kNear; sym_kSafecall; sym_kAssembler;
   sym_kNostackframe; sym_kInterrupt; sym_kNoreturn; sym_kIocheck; sym_kLocal; sym_kHardfloat;
   sym_kSoftfloat; sym_kMs_abi_default; sym_kMs_abi_cdecl; sym_kSaveregisters;
   sym_kSysv_abi_default; sym_kSysv_abi_cdecl; sym_kVectorcall; sym_kVarargs; sym_kWinapi];
   ACTIONS 7233 [sym_kAlias]; ACTIONS 7205 [sym_kAsm; sym_kBegin; sym_kCase; sym_kClass;
   sym_kConst; sym_kConstructor; sym_kDestructor; sym_kExports; sym_kFor; sym_kFunction;
   sym_kGoto; sym_kIf; sym_kInherited]; ACTIONS 1016 [sym_kInline]; ACTIONS 7205 [sym_kLabel;
   sym_kNil; sym_kNot; sym_kProcedure; sym_kProperty; sym_kRaise; sym_kRepeat;
   sym_kResourcestring; sym_kString; sym_kThreadvar; sym_kTry; sym_kType; sym_kUses; sym_kVar;
   sym_kWhile; sym_kWith]].

(** State 844. *)
Definition ts_parse_table_844 : parse_row :=
  [STATE 2921 [sym__ppIf]; STATE 1214 [sym__procAttributeNoExt];
   STATE 1215 [sym__procAttributesPp]; STATE 15691 [sym_procAttribute];
   STATE 737 [aux_sym__declProc_repeat1]; ACTIONS 7236 [anon_sym_SEMI; anon_sym_COMMA];
   ACTIONS 7238 [anon_sym_LBRACK]; ACTIONS 7241 [anon_sym_LPAREN];
   ACTIONS 7236 [aux_sym__literalString_token1; anon_sym_POUND];
   ACTIONS 7241 [aux_sym__literalInt_token1]; ACTIONS 7236 [aux_sym__literalInt_token2;
   aux_sym__literalInt_token3]; ACTIONS 7241 [aux_sym__literalFloat_token1];
   ACTIONS 7243 [aux_sym_ppUsesBlock_token1]; ACTIONS 7236 [aux_sym_ppUsesBlock_token2;
   aux_sym_ppUsesBlock_token3]; ACTIONS 7241 [sym_kAdd; sym_kSub]; ACTIONS 7236 [sym_kAt;
   sym_kTrue; sym_kFalse]; ACTIONS 3 [sym__space]; ACTIONS 5 [sym_ppDirective];
   ACTIONS 3 [sym_comment]; ACTIONS 7236 [sym_ppFragmentExpr; sym__literalStringMultiline;
   sym_identifier]; ACTIONS 7246 [sym_kDefault; sym_kNodefault]; ACTIONS 7249 [sym_kDispId];
   ACTIONS 7236 [sym_kGeneric; sym_kSpecialize; sym_kOperator]; ACTIONS 7252 [sym_kPublic];
   ACTIONS 7246 [sym_kStatic; sym_kVirtual; sym_kAbstract; sym_kDynamic; sym_kOverride;
   sym_kOverload; sym_kReintroduce; sym_kStdcall; sym_kCdecl; sym_kCppdecl; sym_kPascal;
   sym_kRegister; sym_kMwpascal]; ACTIONS 7255 [sym_kMessage]; ACTIONS 7258 [sym_kDeprecated];
   ACTIONS 7246 [sym_kExperimental; sym_kPlatform; sym_kUnimplemented; sym_kCvar];
   ACTIONS 7261 [sym_kExport]; ACTIONS 7246 [sym_kFar; sym_kNear; sym_kSafecall; sym_kAssembler;
   sym_kNostackframe; sym_kInterrupt; sym_kNoreturn; sym_kIocheck; sym_kLocal; sym_kHardfloat;
   sym_kSoftfloat; sym_kMs_abi_default; sym_kMs_abi_cdecl; sym_kSaveregisters;
   sym_kSysv_abi_default; sym_kSysv_abi_cdecl; sym_kVectorcall; sym_kVarargs; sym_kWinapi];
   ACTIONS 7264 [sym_kAlias]; ACTIONS 7236 [sym_kAsm; sym_kBegin; sym_kCase; sym_kClass;
   sym_kConst; sym_kConstructor; sym_kDestructor; sym_kExports; sym_kFor; sym_kFunction;
   sym_kGoto; sym_kIf; sym_kInherited]; ACTIONS 1016 [sym_kInline]; ACTIONS 7236 [sym_kLabel;
   sym_kNil; sym_kNot; sym_kProcedure; sym_kProperty; sym_kRaise; sym_kRepeat;
   sym_kResourcestring; sym_kString; sym_kThreadvar; sym_kTry; sym_kType; sym_kUses; sym_kVar;
   sym_kWhile; sym_kWith]].

(** State 845. *)
Definition ts_parse_table_845 : parse_row :=
  [STATE 2921 [sym__ppIf]; STATE 1214 [sym__procAttributeNoExt];
   STATE 1215 [sym__procAttributesPp]; STATE 15691 [sym_procAttribute];
   STATE 721 [aux_sym__declProc_repeat1]; ACTIONS 1836 [anon_sym_SEMI; anon_sym_COMMA];
   ACTIONS 7267 [anon_sym_LBRACK]; ACTIONS 1841 [anon_sym_LPAREN];
   ACTIONS 1836 [aux_sym__literalString_token1; anon_sym_POUND];
   ACTIONS 1841 [aux_sym__literalInt_token1]; ACTIONS 1836 [aux_sym__literalInt_token2;
   aux_sym__literalInt_token3]; ACTIONS 1841 [aux_sym__literalFloat_token1];
   ACTIONS 1843 [aux_sym_ppUsesBlock_token1]; ACTIONS 1836 [aux_sym_ppUsesBlock_token2;
   aux_sym_ppUsesBlock_token3]; ACTIONS 1841 [sym_kAdd; sym_kSub]; ACTIONS 1836 [sym_kAt;
   sym_kTrue; sym_kFalse]; ACTIONS 3 [sym__space]; ACTIONS 5 [sym_ppDirective];
   ACTIONS 3 [sym_comment]; ACTIONS 1836 [sym_ppFragmentExpr; sym__literalStringMultiline;
   sym_identifier]; ACTIONS 1846 [sym_kDefault; sym_kNodefault]; ACTIONS 1849 [sym_kDispId];
   ACTIONS 1836 [sym_kGeneric; sym_kSpecialize; sym_kOperator]; ACTIONS 1852 [sym_kPublic];
   ACTIONS 1846 [sym_kStatic; sym_kVirtual; sym_kAbstract; sym_kDynamic; sym_kOverride;
   sym_kOverload; sym_kReintroduce; sym_kStdcall; sym_kCdecl; sym_kCppdecl; sym_kPascal;
   sym_kRegister; sym_kMwpascal]; ACTIONS 1855 [sym_kMessage]; ACTIONS 1858 [sym_kDeprecated];
   ACTIONS 1846 [sym_kExperimental; sym_kPlatform; sym_kUnimplemented; sym_kCvar];
   ACTIONS 1861 [sym_kExport]; ACTIONS 1846 [sym_kFar; sym_kNear; sym_kSafecall; sym_kAssembler;
   sym_kNostackframe; sym_kInterrupt; sym_kNoreturn; sym_kIocheck; sym_kLocal; sym_kHardfloat;
   sym_kSoftfloat; sym_kMs_abi_default; sym_kMs_abi_cdecl; sym_kSaveregisters;
   sym_kSysv_abi_default; sym_kSysv_abi_cdecl; sym_kVectorcall; sym_kVarargs; sym_kWinapi];
   ACTIONS 1864 [sym_kAlias]; ACTIONS 1836 [sym_kAsm; sym_kBegin; sym_kCase; sym_kClass;
   sym_kConst; sym_kConstructor; sym_kDestructor; sym_kExports; sym_kFor; sym_kFunction;
   sym_kGoto; sym_kIf; sym_kInherited]; ACTIONS 1016 [sym_kInline]; ACTIONS 1836 [sym_kLabel;
   sym_kNil; sym_kNot; sym_kProcedure; sym_kProperty; sym_kRaise; sym_kRepeat;
   sym_kResourcestring; sym_kString; sym_kThreadvar; sym_kTry; sym_kType; sym_kUses; sym_kVar;
   sym_kWhile; sym_kWith]].

(** State 846. *)
Definition ts_parse_table_846 : parse_row :=
  [STATE 2921 [sym__ppIf]; STATE 1214 [sym__procAttributeNoExt];
   STATE 1215 [sym__procAttributesPp]; STATE 15691 [sym_procAttribute];
   STATE 777 [aux_sym__declProc_repeat1]; ACTIONS 1883 [anon_sym_SEMI; anon_sym_COMMA];
   ACTIONS 7270 [anon_sym_LBRACK]; ACTIONS 1888 [anon_sym_LPAREN];
   ACTIONS 1883 [aux_sym__literalString_token1; anon_sym_POUND];
   ACTIONS 1888 [aux_sym__literalInt_token1]; ACTIONS 1883 [aux_sym__literalInt_token2;
   aux_sym__literalInt_token3]; ACTIONS 1888 [aux_sym__literalFloat_token1];
   ACTIONS 1890 [aux_sym_ppUsesBlock_token1]; ACTIONS 1883 [aux_sym_ppUsesBlock_token2;
   aux_sym_ppUsesBlock_token3]; ACTIONS 1888 [sym_kAdd; sym_kSub]; ACTIONS 1883 [sym_kAt;
   sym_kTrue; sym_kFalse]; ACTIONS 3 [sym__space]; ACTIONS 5 [sym_ppDirective];
   ACTIONS 3 [sym_comment]; ACTIONS 1883 [sym_ppFragmentExpr; sym__literalStringMultiline;
   sym_identifier]; ACTIONS 1893 [sym_kDefault; sym_kNodefault]; ACTIONS 1896 [sym_kDispId];
   ACTIONS 1883 [sym_kGeneric; sym_kSpecialize; sym_kOperator]; ACTIONS 1899 [sym_kPublic];
   ACTIONS 1893 [sym_kStatic; sym_kVirtual; sym_kAbstract; sym_kDynamic; sym_kOverride;
   sym_kOverload; sym_kReintroduce; sym_kStdcall; sym_kCdecl; sym_kCppdecl; sym_kPascal;
   sym_kRegister; sym_kMwpascal]; ACTIONS 1902 [sym_kMessage]; ACTIONS 1905 [sym_kDeprecated];
   ACTIONS 1893 [sym_kExperimental; sym_kPlatform; sym_kUnimplemented; sym_kCvar];
   ACTIONS 1908 [sym_kExport]; ACTIONS 1893 [sym_kFar; sym_kNear; sym_kSafecall; sym_kAssembler;
   sym_kNostackframe; sym_kInterrupt; sym_kNoreturn; sym_kIocheck; sym_kLocal; sym_kHardfloat;
   sym_kSoftfloat; sym_kMs_abi_default; sym_kMs_abi_cdecl; sym_kSaveregisters;
   sym_kSysv_abi_default; sym_kSysv_abi_cdecl; sym_kVectorcall; sym_kVarargs; sym_kWinapi];
   ACTIONS 1911 [sym_kAlias]; ACTIONS 1883 [sym_kAsm; sym_kBegin; sym_kCase; sym_kClass;
   sym_kConst; sym_kConstructor; sym_kDestructor; sym_kExports; sym_kFor; sym_kFunction;
   sym_kGoto; sym_kIf; sym_kInherited]; ACTIONS 1016 [sym_kInline]; ACTIONS 1883 [sym_kLabel;
   sym_kNil; sym_kNot; sym_kProcedure; sym_kProperty; sym_kRaise; sym_kRepeat;
   sym_kResourcestring; sym_kString; sym_kThreadvar; sym_kTry; sym_kType; sym_kUses; sym_kVar;
   sym_kWhile; sym_kWith]].

(** State 847. *)
Definition ts_parse_table_847 : parse_row :=
  [STATE 2921 [sym__ppIf]; STATE 1214 [sym__procAttributeNoExt];
   STATE 1215 [sym__procAttributesPp]; STATE 15691 [sym_procAttribute];
   STATE 808 [aux_sym__declProc_repeat1]; ACTIONS 1914 [anon_sym_SEMI; anon_sym_COMMA];
   ACTIONS 7273 [anon_sym_LBRACK]; ACTIONS 1919 [anon_sym_LPAREN];
   ACTIONS 1914 [aux_sym__literalString_token1; anon_sym_POUND];
   ACTIONS 1919 [aux_sym__literalInt_token1]; ACTIONS 1914 [aux_sym__literalInt_token2;
   aux_sym__literalInt_token3]; ACTIONS 1919 [aux_sym__literalFloat_token1];
   ACTIONS 1921 [aux_sym_ppUsesBlock_token1]; ACTIONS 1914 [aux_sym_ppUsesBlock_token2;
   aux_sym_ppUsesBlock_token3]; ACTIONS 1919 [sym_kAdd; sym_kSub]; ACTIONS 1914 [sym_kAt;
   sym_kTrue; sym_kFalse]; ACTIONS 3 [sym__space]; ACTIONS 5 [sym_ppDirective];
   ACTIONS 3 [sym_comment]; ACTIONS 1914 [sym_ppFragmentExpr; sym__literalStringMultiline;
   sym_identifier]; ACTIONS 1924 [sym_kDefault; sym_kNodefault]; ACTIONS 1927 [sym_kDispId];
   ACTIONS 1914 [sym_kGeneric; sym_kSpecialize; sym_kOperator]; ACTIONS 1930 [sym_kPublic];
   ACTIONS 1924 [sym_kStatic; sym_kVirtual; sym_kAbstract; sym_kDynamic; sym_kOverride;
   sym_kOverload; sym_kReintroduce; sym_kStdcall; sym_kCdecl; sym_kCppdecl; sym_kPascal;
   sym_kRegister; sym_kMwpascal]; ACTIONS 1933 [sym_kMessage]; ACTIONS 1936 [sym_kDeprecated];
   ACTIONS 1924 [sym_kExperimental; sym_kPlatform; sym_kUnimplemented; sym_kCvar];
   ACTIONS 1939 [sym_kExport]; ACTIONS 1924 [sym_kFar; sym_kNear; sym_kSafecall; sym_kAssembler;
   sym_kNostackframe; sym_kInterrupt; sym_kNoreturn; sym_kIocheck; sym_kLocal; sym_kHardfloat;
   sym_kSoftfloat; sym_kMs_abi_default; sym_kMs_abi_cdecl; sym_kSaveregisters;
   sym_kSysv_abi_default; sym_kSysv_abi_cdecl; sym_kVectorcall; sym_kVarargs; sym_kWinapi];
   ACTIONS 1942 [sym_kAlias]; ACTIONS 1914 [sym_kAsm; sym_kBegin; sym_kCase; sym_kClass;
   sym_kConst; sym_kConstructor; sym_kDestructor; sym_kExports; sym_kFor; sym_kFunction;
   sym_kGoto; sym_kIf; sym_kInherited]; ACTIONS 1016 [sym_kInline]; ACTIONS 1914 [sym_kLabel;
   sym_kNil; sym_kNot; sym_kProcedure; sym_kProperty; sym_kRaise; sym_kRepeat;
   sym_kResourcestring; sym_kString; sym_kThreadvar; sym_kTry; sym_kType; sym_kUses; sym_kVar;
   sym_kWhile; sym_kWith]].

(** State 848. *)
Definition ts_parse_table_848 : parse_row :=
  [STATE 2921 [sym__ppIf]; STATE 1214 [sym__procAttributeNoExt];
   STATE 1215 [sym__procAttributesPp]; STATE 15691 [sym_procAttribute];
   STATE 681 [aux_sym__declProc_repeat1]; ACTIONS 1947 [anon_sym_SEMI; anon_sym_COMMA];
   ACTIONS 7276 [anon_sym_LBRACK]; ACTIONS 1952 [anon_sym_LPAREN];
   ACTIONS 1947 [aux_sym__literalString_token1; anon_sym_POUND];
   ACTIONS 1952 [aux_sym__literalInt_token1]; ACTIONS 1947 [aux_sym__literalInt_token2;
   aux_sym__literalInt_token3]; ACTIONS 1952 [aux_sym__literalFloat_token1];
   ACTIONS 1954 [aux_sym_ppUsesBlock_token1]; ACTIONS 1947 [aux_sym_ppUsesBlock_token2;
   aux_sym_ppUsesBlock_token3]; ACTIONS 1952 [sym_kAdd; sym_kSub]; ACTIONS 1947 [sym_kAt;
   sym_kTrue; sym_kFalse]; ACTIONS 3 [sym__space]; ACTIONS 5 [sym_ppDirective];
   ACTIONS 3 [sym_comment]; ACTIONS 1947 [sym_ppFragmentExpr; sym__literalStringMultiline;
   sym_identifier]; ACTIONS 1957 [sym_kDefault; sym_kNodefault]; ACTIONS 1960 [sym_kDispId];
   ACTIONS 1947 [sym_kGeneric; sym_kSpecialize; sym_kOperator]; ACTIONS 1963 [sym_kPublic];
   ACTIONS 1957 [sym_kStatic; sym_kVirtual; sym_kAbstract; sym_kDynamic; sym_kOverride;
   sym_kOverload; sym_kReintroduce; sym_kStdcall; sym_kCdecl; sym_kCppdecl; sym_kPascal;
   sym_kRegister; sym_kMwpascal]; ACTIONS 1966 [sym_kMessage]; ACTIONS 1969 [sym_kDeprecated];
   ACTIONS 1957 [sym_kExperimental; sym_kPlatform; sym_kUnimplemented; sym_kCvar];
   ACTIONS 1972 [sym_kExport]; ACTIONS 1957 [sym_kFar; sym_kNear; sym_kSafecall; sym_kAssembler;
   sym_kNostackframe; sym_kInterrupt; sym_kNoreturn; sym_kIocheck; sym_kLocal; sym_kHardfloat;
   sym_kSoftfloat; sym_kMs_abi_default; sym_kMs_abi_cdecl; sym_kSaveregisters;
   sym_kSysv_abi_default; sym_kSysv_abi_cdecl; sym_kVectorcall; sym_kVarargs; sym_kWinapi];
   ACTIONS 1975 [sym_kAlias]; ACTIONS 1947 [sym_kAsm; sym_kBegin; sym_kCase; sym_kClass;
   sym_kConst; sym_kConstructor; sym_kDestructor; sym_kExports; sym_kFor; sym_kFunction;
   sym_kGoto; sym_kIf; sym_kInherited]; ACTIONS 1016 [sym_kInline]; ACTIONS 1947 [sym_kLabel;
   sym_kNil; sym_kNot; sym_kProcedure; sym_kProperty; sym_kRaise; sym_kRepeat;
   sym_kResourcestring; sym_kString; sym_kThreadvar; sym_kTry; sym_kType; sym_kUses; sym_kVar;
   sym_kWhile; sym_kWith]].

(** State 849. *)
Definition ts_parse_table_849 : parse_row :=
  [STATE 2921 [sym__ppIf]; STATE 1214 [sym__procAttributeNoExt];
   STATE 1215 [sym__procAttributesPp]; STATE 15691 [sym_procAttribute];
   STATE 720 [aux_sym__declProc_repeat1]; ACTIONS 7279 [anon_sym_SEMI; anon_sym_COMMA];
   ACTIONS 7281 [anon_sym_LBRACK]; ACTIONS 7284 [anon_sym_LPAREN];
   ACTIONS 7279 [aux_sym__literalString_token1; anon_sym_POUND];
   ACTIONS 7284 [aux_sym__literalInt_token1]; ACTIONS 7279 [aux_sym__literalInt_token2;
   aux_sym__literalInt_token3]; ACTIONS 7284 [aux_sym__literalFloat_token1];
   ACTIONS 7286 [aux_sym_ppUsesBlock_token1]; ACTIONS 7279 [aux_sym_ppUsesBlock_token2;
   aux_sym_ppUsesBlock_token3]; ACTIONS 7284 [sym_kAdd; sym_kSub]; ACTIONS 7279 [sym_kAt;
   sym_kTrue; sym_kFalse]; ACTIONS 3 [sym__space]; ACTIONS 5 [sym_ppDirective];
   ACTIONS 3 [sym_comment]; ACTIONS 7279 [sym_ppFragmentExpr; sym__literalStringMultiline;
   sym_identifier]; ACTIONS 7289 [sym_kDefault; sym_kNodefault]; ACTIONS 7292 [sym_kDispId];
   ACTIONS 7279 [sym_kGeneric; sym_kSpecialize; sym_kOperator]; ACTIONS 7295 [sym_kPublic];
   ACTIONS 7289 [sym_kStatic; sym_kVirtual; sym_kAbstract; sym_kDynamic; sym_kOverride;
   sym_kOverload; sym_kReintroduce; sym_kStdcall; sym_kCdecl; sym_kCppdecl; sym_kPascal;
   sym_kRegister; sym_kMwpascal]; ACTIONS 7298 [sym_kMessage]; ACTIONS 7301 [sym_kDeprecated];
   ACTIONS 7289 [sym_kExperimental; sym_kPlatform; sym_kUnimplemented; sym_kCvar];
   ACTIONS 7304 [sym_kExport]; ACTIONS 7289 [sym_kFar; sym_kNear; sym_kSafecall; sym_kAssembler;
   sym_kNostackframe; sym_kInterrupt; sym_kNoreturn; sym_kIocheck; sym_kLocal; sym_kHardfloat;
   sym_kSoftfloat; sym_kMs_abi_default; sym_kMs_abi_cdecl; sym_kSaveregisters;
   sym_kSysv_abi_default; sym_kSysv_abi_cdecl; sym_kVectorcall; sym_kVarargs; sym_kWinapi];
   ACTIONS 7307 [sym_kAlias]; ACTIONS 7279 [sym_kAsm; sym_kBegin; sym_kCase; sym_kClass;
   sym_kConst; sym_kConstructor; sym_kDestructor; sym_kExports; sym_kFor; sym_kFunction;
   sym_kGoto; sym_kIf; sym_kInherited]; ACTIONS 1016 [sym_kInline]; ACTIONS 7279 [sym_kLabel;
   sym_kNil; sym_kNot; sym_kProcedure; sym_kProperty; sym_kRaise; sym_kRepeat;
   sym_kResourcestring; sym_kString; sym_kThreadvar; sym_kTry; sym_kType; sym_kUses; sym_kVar;
   sym_kWhile; sym_kWith]].

(** State 850. *)
Definition ts_parse_table_850 : parse_row :=
  [STATE 2921 [sym__ppIf]; STATE 1214 [sym__procAttributeNoExt];
   STATE 1215 [sym__procAttributesPp]; STATE 15691 [sym_procAttribute];
   STATE 733 [aux_sym__declProc_repeat1]; ACTIONS 1992 [anon_sym_SEMI; anon_sym_COMMA];
   ACTIONS 7310 [anon_sym_LBRACK]; ACTIONS 1997 [anon_sym_LPAREN];
   ACTIONS 1992 [aux_sym__literalString_token1; anon_sym_POUND];
   ACTIONS 1997 [aux_sym__literalInt_token1]; ACTIONS 1992 [aux_sym__literalInt_token2;
   aux_sym__literalInt_token3]; ACTIONS 1997 [aux_sym__literalFloat_token1];
   ACTIONS 1999 [aux_sym_ppUsesBlock_token1]; ACTIONS 1992 [aux_sym_ppUsesBlock_token2;
   aux_sym_ppUsesBlock_token3]; ACTIONS 1997 [sym_kAdd; sym_kSub]; ACTIONS 1992 [sym_kAt;
   sym_kTrue; sym_kFalse]; ACTIONS 3 [sym__space]; ACTIONS 5 [sym_ppDirective];
   ACTIONS 3 [sym_comment]; ACTIONS 1992 [sym_ppFragmentExpr; sym__literalStringMultiline;
   sym_identifier]; ACTIONS 2002 [sym_kDefault; sym_kNodefault]; ACTIONS 2005 [sym_kDispId];
   ACTIONS 1992 [sym_kGeneric; sym_kSpecialize; sym_kOperator]; ACTIONS 2008 [sym_kPublic];
   ACTIONS 2002 [sym_kStatic; sym_kVirtual; sym_kAbstract; sym_kDynamic; sym_kOverride;
   sym_kOverload; sym_kReintroduce; sym_kStdcall; sym_kCdecl; sym_kCppdecl; sym_kPascal;
   sym_kRegister; sym_kMwpascal]; ACTIONS 2011 [sym_kMessage]; ACTIONS 2014 [sym_kDeprecated];
   ACTIONS 2002 [sym_kExperimental; sym_kPlatform; sym_kUnimplemented; sym_kCvar];
   ACTIONS 2017 [sym_kExport]; ACTIONS 2002 [sym_kFar; sym_kNear; sym_kSafecall; sym_kAssembler;
   sym_kNostackframe; sym_kInterrupt; sym_kNoreturn; sym_kIocheck; sym_kLocal; sym_kHardfloat;
   sym_kSoftfloat; sym_kMs_abi_default; sym_kMs_abi_cdecl; sym_kSaveregisters;
   sym_kSysv_abi_default; sym_kSysv_abi_cdecl; sym_kVectorcall; sym_kVarargs; sym_kWinapi];
   ACTIONS 2020 [sym_kAlias]; ACTIONS 1992 [sym_kAsm; sym_kBegin; sym_kCase; sym_kClass;
   sym_kConst; sym_kConstructor; sym_kDestructor; sym_kExports; sym_kFor; sym_kFunction;
   sym_kGoto; sym_kIf; sym_kInherited]; ACTIONS 1016 [sym_kInline]; ACTIONS 1992 [sym_kLabel;
   sym_kNil; sym_kNot; sym_kProcedure; sym_kProperty; sym_kRaise; sym_kRepeat;
   sym_kResourcestring; sym_kString; sym_kThreadvar; sym_kTry; sym_kType; sym_kUses; sym_kVar;
   sym_kWhile; sym_kWith]].

(** State 851. *)
Definition ts_parse_table_851 : parse_row :=
  [STATE 2921 [sym__ppIf]; STATE 1214 [sym__procAttributeNoExt];
   STATE 1215 [sym__procAttributesPp]; STATE 15691 [sym_procAttribute];
   STATE 777 [aux_sym__declProc_repeat1]; ACTIONS 2874 [anon_sym_SEMI; anon_sym_COMMA];
   ACTIONS 7313 [anon_sym_LBRACK]; ACTIONS 2879 [anon_sym_LPAREN];
   ACTIONS 2874 [aux_sym__literalString_token1; anon_sym_POUND];
   ACTIONS 2879 [aux_sym__literalInt_token1]; ACTIONS 2874 [aux_sym__literalInt_token2;
   aux_sym__literalInt_token3]; ACTIONS 2879 [aux_sym__literalFloat_token1];
   ACTIONS 2881 [aux_sym_ppUsesBlock_token1]; ACTIONS 2874 [aux_sym_ppUsesBlock_token2;
   aux_sym_ppUsesBlock_token3]; ACTIONS 2879 [sym_kAdd; sym_kSub]; ACTIONS 2874 [sym_kAt;
   sym_kTrue; sym_kFalse]; ACTIONS 3 [sym__space]; ACTIONS 5 [sym_ppDirective];
   ACTIONS 3 [sym_comment]; ACTIONS 2874 [sym_ppFragmentExpr; sym__literalStringMultiline;
   sym_identifier]; ACTIONS 2884 [sym_kDefault; sym_kNodefault]; ACTIONS 2887 [sym_kDispId];
   ACTIONS 2874 [sym_kGeneric; sym_kSpecialize; sym_kOperator]; ACTIONS 2890 [sym_kPublic];
   ACTIONS 2884 [sym_kStatic; sym_kVirtual; sym_kAbstract; sym_kDynamic; sym_kOverride;
   sym_kOverload; sym_kReintroduce; sym_kStdcall; sym_kCdecl; sym_kCppdecl; sym_kPascal;
   sym_kRegister; sym_kMwpascal]; ACTIONS 2893 [sym_kMessage]; ACTIONS 2896 [sym_kDeprecated];
   ACTIONS 2884 [sym_kExperimental; sym_kPlatform; sym_kUnimplemented; sym_kCvar];
   ACTIONS 2899 [sym_kExport]; ACTIONS 2884 [sym_kFar; sym_kNear; sym_kSafecall; sym_kAssembler;
   sym_kNostackframe; sym_kInterrupt; sym_kNoreturn; sym_kIocheck; sym_kLocal; sym_kHardfloat;
   sym_kSoftfloat; sym_kMs_abi_default; sym_kMs_abi_cdecl; sym_kSaveregisters;
   sym_kSysv_abi_default; sym_kSysv_abi_cdecl; sym_kVectorcall; sym_kVarargs; sym_kWinapi];
   ACTIONS 2902 [sym_kAlias]; ACTIONS 2874 [sym_kAsm; sym_kBegin; sym_kCase; sym_kClass;
   sym_kConst; sym_kConstructor; sym_kDestructor; sym_kExports; sym_kFor; sym_kFunction;
   sym_kGoto; sym_kIf; sym_kInherited]; ACTIONS 1016 [sym_kInline]; ACTIONS 2874 [sym_kLabel;
   sym_kNil; sym_kNot; sym_kProcedure; sym_kProperty; sym_kRaise; sym_kRepeat;
   sym_kResourcestring; sym_kString; sym_kThreadvar; sym_kTry; sym_kType; sym_kUses; sym_kVar;
   sym_kWhile; sym_kWith]].

(** State 852. *)
Definition ts_parse_table_852 : parse_row :=
  [STATE 2921 [sym__ppIf]; STATE 1214 [sym__procAttributeNoExt];
   STATE 1215 [sym__procAttributesPp]; STATE 15691 [sym_procAttribute];
   STATE 777 [aux_sym__declProc_repeat1]; ACTIONS 2023 [anon_sym_SEMI; anon_sym_COMMA];
   ACTIONS 7316 [anon_sym_LBRACK]; ACTIONS 2028 [anon_sym_LPAREN];
   ACTIONS 2023 [aux_sym__literalString_token1; anon_sym_POUND];
   ACTIONS 2028 [aux_sym__literalInt_token1]; ACTIONS 2023 [aux_sym__literalInt_token2;
   aux_sym__literalInt_token3]; ACTIONS 2028 [aux_sym__literalFloat_token1];
   ACTIONS 2030 [aux_sym_ppUsesBlock_token1]; ACTIONS 2023 [aux_sym_ppUsesBlock_token2;
   aux_sym_ppUsesBlock_token3]; ACTIONS 2028 [sym_kAdd; sym_kSub]; ACTIONS 2023 [sym_kAt;
   sym_kTrue; sym_kFalse]; ACTIONS 3 [sym__space]; ACTIONS 5 [sym_ppDirective];
   ACTIONS 3 [sym_comment]; ACTIONS 2023 [sym_ppFragmentExpr; sym__literalStringMultiline;
   sym_identifier]; ACTIONS 2033 [sym_kDefault; sym_kNodefault]; ACTIONS 2036 [sym_kDispId];
   ACTIONS 2023 [sym_kGeneric; sym_kSpecialize; sym_kOperator]; ACTIONS 2039 [sym_kPublic];
   ACTIONS 2033 [sym_kStatic; sym_kVirtual; sym_kAbstract; sym_kDynamic; sym_kOverride;
   sym_kOverload; sym_kReintroduce; sym_kStdcall; sym_kCdecl; sym_kCppdecl; sym_kPascal;
   sym_kRegister; sym_kMwpascal]; ACTIONS 2042 [sym_kMessage]; ACTIONS 2045 [sym_kDeprecated];
   ACTIONS 2033 [sym_kExperimental; sym_kPlatform; sym_kUnimplemented; sym_kCvar];
   ACTIONS 2048 [sym_kExport]; ACTIONS 2033 [sym_kFar; sym_kNear; sym_kSafecall; sym_kAssembler;
   sym_kNostackframe; sym_kInterrupt; sym_kNoreturn; sym_kIocheck; sym_kLocal; sym_kHardfloat;
   sym_kSoftfloat; sym_kMs_abi_default; sym_kMs_abi_cdecl; sym_kSaveregisters;
   sym_kSysv_abi_default; sym_kSysv_abi_cdecl; sym_kVectorcall; sym_kVarargs; sym_kWinapi];
   ACTIONS 2051 [sym_kAlias]; ACTIONS 2023 [sym_kAsm; sym_kBegin; sym_kCase; sym_kClass;
   sym_kConst; sym_kConstructor; sym_kDestructor; sym_kExports; sym_kFor; sym_kFunction;
   sym_kGoto; sym_kIf; sym_kInherited]; ACTIONS 1016 [sym_kInline]; ACTIONS 2023 [sym_kLabel;
   sym_kNil; sym_kNot; sym_kProcedure; sym_kProperty; sym_kRaise; sym_kRepeat;
   sym_kResourcestring; sym_kString; sym_kThreadvar; sym_kTry; sym_kType; sym_kUses; sym_kVar;
   sym_kWhile; sym_kWith]].

(** State 853. *)
Definition ts_parse_table_853 : parse_row :=
  [STATE 2921 [sym__ppIf]; STATE 1214 [sym__procAttributeNoExt];
   STATE 1215 [sym__procAttributesPp]; STATE 15691 [sym_procAttribute];
   STATE 812 [aux_sym__declProc_repeat1]; ACTIONS 7319 [anon_sym_SEMI; anon_sym_COMMA];
   ACTIONS 7321 [anon_sym_LBRACK]; ACTIONS 7324 [anon_sym_LPAREN];
   ACTIONS 7319 [aux_sym__literalString_token1; anon_sym_POUND];
   ACTIONS 7324 [aux_sym__literalInt_token1]; ACTIONS 7319 [aux_sym__literalInt_token2;
   aux_sym__literalInt_token3]; ACTIONS 7324 [aux_sym__literalFloat_token1];
   ACTIONS 7326 [aux_sym_ppUsesBlock_token1]; ACTIONS 7319 [aux_sym_ppUsesBlock_token2;
   aux_sym_ppUsesBlock_token3]; ACTIONS 7324 [sym_kAdd; sym_kSub]; ACTIONS 7319 [sym_kAt;
   sym_kTrue; sym_kFalse]; ACTIONS 3 [sym__space]; ACTIONS 5 [sym_ppDirective];
   ACTIONS 3 [sym_comment]; ACTIONS 7319 [sym_ppFragmentExpr; sym__literalStringMultiline;
   sym_identifier]; ACTIONS 7329 [sym_kDefault; sym_kNodefault]; ACTIONS 7332 [sym_kDispId];
   ACTIONS 7319 [sym_kGeneric; sym_kSpecialize; sym_kOperator]; ACTIONS 7335 [sym_kPublic];
   ACTIONS 7329 [sym_kStatic; sym_kVirtual; sym_kAbstract; sym_kDynamic; sym_kOverride;
   sym_kOverload; sym_kReintroduce; sym_kStdcall; sym_kCdecl; sym_kCppdecl; sym_kPascal;
   sym_kRegister; sym_kMwpascal]; ACTIONS 7338 [sym_kMessage]; ACTIONS 7341 [sym_kDeprecated];
   ACTIONS 7329 [sym_kExperimental; sym_kPlatform; sym_kUnimplemented; sym_kCvar];
   ACTIONS 7344 [sym_kExport]; ACTIONS 7329 [sym_kFar; sym_kNear; sym_kSafecall; sym_kAssembler;
   sym_kNostackframe; sym_kInterrupt; sym_kNoreturn; sym_kIocheck; sym_kLocal; sym_kHardfloat;
   sym_kSoftfloat; sym_kMs_abi_default; sym_kMs_abi_cdecl; sym_kSaveregisters;
   sym_kSysv_abi_default; sym_kSysv_abi_cdecl; sym_kVectorcall; sym_kVarargs; sym_kWinapi];
   ACTIONS 7347 [sym_kAlias]; ACTIONS 7319 [sym_kAsm; sym_kBegin; sym_kCase; sym_kClass;
   sym_kConst; sym_kConstructor; sym_kDestructor; sym_kExports; sym_kFor; sym_kFunction;
   sym_kGoto; sym_kIf; sym_kInherited]; ACTIONS 1016 [sym_kInline]; ACTIONS 7319 [sym_kLabel;
   sym_kNil; sym_kNot; sym_kProcedure; sym_kProperty; sym_kRaise; sym_kRepeat;
   sym_kResourcestring; sym_kString; sym_kThreadvar; sym_kTry; sym_kType; sym_kUses; sym_kVar;
   sym_kWhile; sym_kWith]].

(** State 854. *)
Definition ts_parse_table_854 : parse_row :=
  [STATE 2921 [sym__ppIf]; STATE 1214 [sym__procAttributeNoExt];
   STATE 1215 [sym__procAttributesPp]; STATE 15691 [sym_procAttribute];
   STATE 777 [aux_sym__declProc_repeat1]; ACTIONS 2056 [anon_sym_SEMI; anon_sym_COMMA];
   ACTIONS 7350 [anon_sym_LBRACK]; ACTIONS 2061 [anon_sym_LPAREN];
   ACTIONS 2056 [aux_sym__literalString_token1; anon_sym_POUND];
   ACTIONS 2061 [aux_sym__literalInt_token1]; ACTIONS 2056 [aux_sym__literalInt_token2;
   aux_sym__literalInt_token3]; ACTIONS 2061 [aux_sym__literalFloat_token1];
   ACTIONS 2063 [aux_sym_ppUsesBlock_token1]; ACTIONS 2056 [aux_sym_ppUsesBlock_token2;
   aux_sym_ppUsesBlock_token3]; ACTIONS 2061 [sym_kAdd; sym_kSub]; ACTIONS 2056 [sym_kAt;
   sym_kTrue; sym_kFalse]; ACTIONS 3 [sym__space]; ACTIONS 5 [sym_ppDirective];
   ACTIONS 3 [sym_comment]; ACTIONS 2056 [sym_ppFragmentExpr; sym__literalStringMultiline;
   sym_identifier]; ACTIONS 2066 [sym_kDefault; sym_kNodefault]; ACTIONS 2069 [sym_kDispId];
   ACTIONS 2056 [sym_kGeneric; sym_kSpecialize; sym_kOperator]; ACTIONS 2072 [sym_kPublic];
   ACTIONS 2066 [sym_kStatic; sym_kVirtual; sym_kAbstract; sym_kDynamic; sym_kOverride;
   sym_kOverload; sym_kReintroduce; sym_kStdcall; sym_kCdecl; sym_kCppdecl; sym_kPascal;
   sym_kRegister; sym_kMwpascal]; ACTIONS 2075 [sym_kMessage]; ACTIONS 2078 [sym_kDeprecated];
   ACTIONS 2066 [sym_kExperimental; sym_kPlatform; sym_kUnimplemented; sym_kCvar];
   ACTIONS 2081 [sym_kExport]; ACTIONS 2066 [sym_kFar; sym_kNear; sym_kSafecall; sym_kAssembler;
   sym_kNostackframe; sym_kInterrupt; sym_kNoreturn; sym_kIocheck; sym_kLocal; sym_kHardfloat;
   sym_kSoftfloat; sym_kMs_abi_default; sym_kMs_abi_cdecl; sym_kSaveregisters;
   sym_kSysv_abi_default; sym_kSysv_abi_cdecl; sym_kVectorcall; sym_kVarargs; sym_kWinapi];
   ACTIONS 2084 [sym_kAlias]; ACTIONS 2056 [sym_kAsm; sym_kBegin; sym_kCase; sym_kClass;
   sym_kConst; sym_kConstructor; sym_kDestructor; sym_kExports; sym_kFor; sym_kFunction;
   sym_kGoto; sym_kIf; sym_kInherited]; ACTIONS 1016 [sym_kInline]; ACTIONS 2056 [sym_kLabel;
   sym_kNil; sym_kNot; sym_kProcedure; sym_kProperty; sym_kRaise; sym_kRepeat;
   sym_kResourcestring; sym_kString; sym_kThreadvar; sym_kTry; sym_kType; sym_kUses; sym_kVar;
   sym_kWhile; sym_kWith]].

(** State 855. *)
Definition ts_parse_table_855 : parse_row :=
  [STATE 5784 [sym_if]; STATE 5738 [sym_ifElse; sym_while; sym_repeat; sym_for; sym_foreach;
   sym_try; sym_case; sym_block; sym_asm; sym_with; sym_raise; sym_statement; sym_goto;
   sym_labeledStatement; sym__statement]; STATE 11897 [sym_ifTr; sym_ifElseTr; sym_whileTr;
   sym_repeatTr; sym_forTr; sym_foreachTr; sym_tryTr; sym_caseTr]; STATE 11959 [sym_blockTr];
   STATE 11897 [sym_asmTr; sym_withTr; sym_raiseTr; sym_statementTr; sym_gotoTr;
   sym_labeledStatementTr; sym__statementTr]; STATE 11608 [sym_assignment];
   STATE 11896 [sym_varAssignDef]; STATE 11608 [sym_varDef; sym_constDef]; STATE 859 [sym_label];
   STATE 7327 [sym__expr; sym_exprConditional]; STATE 7013 [sym__ref; sym_lambda; sym_inherited;
   sym_exprDot; sym_exprDeref; sym_exprAs; sym_exprTpl; sym_exprSubscript; sym_exprCall];
   STATE 7327 [sym_exprBinary; sym_exprUnary]; STATE 7013 [sym_exprParens; sym_exprBrackets;
   sym__literal; sym_literalString]; STATE 6066 [sym__literalString; sym_literalChar];
   STATE 7013 [sym_literalNumber]; STATE 7084 [sym__literalInt; sym__literalFloat];
   STATE 6066 [aux_sym_literalString_repeat1]; ACTIONS 3276 [anon_sym_SEMI];
   ACTIONS 609 [anon_sym_LBRACK]; ACTIONS 611 [anon_sym_LPAREN];
   ACTIONS 613 [aux_sym__literalString_token1]; ACTIONS 615 [anon_sym_POUND];
   ACTIONS 617 [aux_sym__literalInt_token1]; ACTIONS 619 [aux_sym__literalInt_token2;
   aux_sym__literalInt_token3]; ACTIONS 617 [aux_sym__literalFloat_token1];
   ACTIONS 621 [sym_kAdd; sym_kSub]; ACTIONS 623 [sym_kAt]; ACTIONS 625 [sym_kTrue; sym_kFalse];
   ACTIONS 3783 [sym_labelNumber]; ACTIONS 3 [sym__space]; ACTIONS 5 [sym_ppDirective];
   ACTIONS 3 [sym_comment]; ACTIONS 625 [sym_ppFragmentExpr];
   ACTIONS 613 [sym__literalStringMultiline]; ACTIONS 3785 [sym_identifier];
   ACTIONS 631 [sym_kSpecialize]; ACTIONS 633 [sym_kAsm]; ACTIONS 635 [sym_kBegin];
   ACTIONS 637 [sym_kCase]; ACTIONS 639 [sym_kConst]; ACTIONS 3278 [sym_kEnd; sym_kFinalization];
   ACTIONS 643 [sym_kFor]; ACTIONS 645 [sym_kFunction]; ACTIONS 647 [sym_kGoto];
   ACTIONS 649 [sym_kIf]; ACTIONS 3278 [sym_kImplementation]; ACTIONS 651 [sym_kInherited];
   ACTIONS 3278 [sym_kInitialization; sym_kInterface]; ACTIONS 625 [sym_kNil];
   ACTIONS 623 [sym_kNot]; ACTIONS 645 [sym_kProcedure]; ACTIONS 653 [sym_kRaise];
   ACTIONS 655 [sym_kRepeat]; ACTIONS 657 [sym_kString]; ACTIONS 659 [sym_kTry];
   ACTIONS 661 [sym_kVar]; ACTIONS 663 [sym_kWhile]; ACTIONS 665 [sym_kWith]].

(** State 856. *)
Definition ts_parse_table_856 : parse_row :=
  [STATE 2921 [sym__ppIf]; STATE 1214 [sym__procAttributeNoExt];
   STATE 1215 [sym__procAttributesPp]; STATE 15691 [sym_procAttribute];
   STATE 804 [aux_sym__declProc_repeat1]; ACTIONS 2318 [anon_sym_SEMI; anon_sym_COMMA];
   ACTIONS 7353 [anon_sym_LBRACK]; ACTIONS 2323 [anon_sym_LPAREN];
   ACTIONS 2318 [aux_sym__literalString_token1; anon_sym_POUND];
   ACTIONS 2323 [aux_sym__literalInt_token1]; ACTIONS 2318 [aux_sym__literalInt_token2;
   aux_sym__literalInt_token3]; ACTIONS 2323 [aux_sym__literalFloat_token1];
   ACTIONS 2325 [aux_sym_ppUsesBlock_token1]; ACTIONS 2318 [aux_sym_ppUsesBlock_token2;
   aux_sym_ppUsesBlock_token3]; ACTIONS 2323 [sym_kAdd; sym_kSub]; ACTIONS 2318 [sym_kAt;
   sym_kTrue; sym_kFalse]; ACTIONS 3 [sym__space]; ACTIONS 5 [sym_ppDirective];
   ACTIONS 3 [sym_comment]; ACTIONS 2318 [sym_ppFragmentExpr; sym__literalStringMultiline;
   sym_identifier]; ACTIONS 2328 [sym_kDefault; sym_kNodefault]; ACTIONS 2331 [sym_kDispId];
   ACTIONS 2318 [sym_kGeneric; sym_kSpecialize; sym_kOperator]; ACTIONS 2334 [sym_kPublic];
   ACTIONS 2328 [sym_kStatic; sym_kVirtual; sym_kAbstract; sym_kDynamic; sym_kOverride;
   sym_kOverload; sym_kReintroduce; sym_kStdcall; sym_kCdecl; sym_kCppdecl; sym_kPascal;
   sym_kRegister; sym_kMwpascal]; ACTIONS 2337 [sym_kMessage]; ACTIONS 2340 [sym_kDeprecated];
   ACTIONS 2328 [sym_kExperimental; sym_kPlatform; sym_kUnimplemented; sym_kCvar];
   ACTIONS 2343 [sym_kExport]; ACTIONS 2328 [sym_kFar; sym_kNear; sym_kSafecall; sym_kAssembler;
   sym_kNostackframe; sym_kInterrupt; sym_kNoreturn; sym_kIocheck; sym_kLocal; sym_kHardfloat;
   sym_kSoftfloat; sym_kMs_abi_default; sym_kMs_abi_cdecl; sym_kSaveregisters;
   sym_kSysv_abi_default; sym_kSysv_abi_cdecl; sym_kVectorcall; sym_kVarargs; sym_kWinapi];
   ACTIONS 2346 [sym_kAlias]; ACTIONS 2318 [sym_kAsm; sym_kBegin; sym_kCase; sym_kClass;
   sym_kConst; sym_kConstructor; sym_kDestructor; sym_kExports; sym_kFor; sym_kFunction;
   sym_kGoto; sym_kIf; sym_kInherited]; ACTIONS 1016 [sym_kInline]; ACTIONS 2318 [sym_kLabel;
   sym_kNil; sym_kNot; sym_kProcedure; sym_kProperty; sym_kRaise; sym_kRepeat;
   sym_kResourcestring; sym_kString; sym_kThreadvar; sym_kTry; sym_kType; sym_kUses; sym_kVar;
   sym_kWhile; sym_kWith]].

(** State 857. *)
Definition ts_parse_table_857 : parse_row :=
  [STATE 1204 [sym__procAttribute]; STATE 15235 [sym_procAttribute]; STATE 817 [sym_procExternal;
   aux_sym_declVar_repeat2]; ACTIONS 7356 [anon_sym_SEMI; anon_sym_COMMA];
   ACTIONS 7358 [anon_sym_LBRACK]; ACTIONS 7361 [anon_sym_LPAREN];
   ACTIONS 7356 [aux_sym__literalString_token1; anon_sym_POUND];
   ACTIONS 7361 [aux_sym__literalInt_token1]; ACTIONS 7356 [aux_sym__literalInt_token2;
   aux_sym__literalInt_token3]; ACTIONS 7361 [aux_sym__literalFloat_token1];
   ACTIONS 7356 [aux_sym_ppUsesBlock_token1; aux_sym_ppUsesBlock_token2;
   aux_sym_ppUsesBlock_token3]; ACTIONS 7361 [sym_kAdd; sym_kSub]; ACTIONS 7356 [sym_kAt;
   sym_kTrue; sym_kFalse]; ACTIONS 3 [sym__space]; ACTIONS 5 [sym_ppDirective];
   ACTIONS 3 [sym_comment]; ACTIONS 7356 [sym_ppFragmentExpr; sym__literalStringMultiline;
   sym_identifier]; ACTIONS 7363 [sym_kDefault; sym_kNodefault]; ACTIONS 7366 [sym_kDispId];
   ACTIONS 7356 [sym_kGeneric; sym_kSpecialize; sym_kOperator]; ACTIONS 7369 [sym_kPublic];
   ACTIONS 7363 [sym_kStatic; sym_kVirtual; sym_kAbstract; sym_kDynamic; sym_kOverride;
   sym_kOverload; sym_kReintroduce; sym_kStdcall; sym_kCdecl; sym_kCppdecl; sym_kPascal;
   sym_kRegister; sym_kMwpascal]; ACTIONS 3438 [sym_kExternal]; ACTIONS 7372 [sym_kMessage];
   ACTIONS 7375 [sym_kDeprecated]; ACTIONS 7363 [sym_kExperimental; sym_kPlatform;
   sym_kUnimplemented; sym_kCvar]; ACTIONS 7378 [sym_kExport]; ACTIONS 7363 [sym_kFar; sym_kNear;
   sym_kSafecall; sym_kAssembler; sym_kNostackframe; sym_kInterrupt; sym_kNoreturn; sym_kIocheck;
   sym_kLocal; sym_kHardfloat; sym_kSoftfloat; sym_kMs_abi_default; sym_kMs_abi_cdecl;
   sym_kSaveregisters; sym_kSysv_abi_default; sym_kSysv_abi_cdecl; sym_kVectorcall; sym_kVarargs;
   sym_kWinapi]; ACTIONS 7381 [sym_kAlias]; ACTIONS 7356 [sym_kAsm; sym_kBegin; sym_kCase;
   sym_kClass; sym_kConst; sym_kConstructor; sym_kDestructor; sym_kExports; sym_kFor;
   sym_kFunction; sym_kGoto; sym_kIf; sym_kInherited]; ACTIONS 1016 [sym_kInline];
   ACTIONS 7356 [sym_kLabel; sym_kNil; sym_kNot; sym_kProcedure; sym_kProperty; sym_kRaise;
   sym_kRepeat; sym_kResourcestring; sym_kString; sym_kThreadvar; sym_kTry; sym_kType; sym_kUses;
   sym_kVar; sym_kWhile; sym_kWith]].

(** State 858. *)
Definition ts_parse_table_858 : parse_row :=
  [STATE 5784 [sym_if]; STATE 5740 [sym_ifElse; sym_while; sym_repeat; sym_for; sym_foreach;
   sym_try; sym_case; sym_block; sym_asm; sym_with; sym_raise; sym_statement; sym_goto;
   sym__statement]; STATE 11761 [sym_ifTr; sym_ifElseTr; sym_whileTr; sym_repeatTr; sym_forTr;
   sym_foreachTr; sym_tryTr; sym_caseTr]; STATE 11959 [sym_blockTr]; STATE 11761 [sym_asmTr;
   sym_withTr; sym_raiseTr; sym_statementTr; sym_gotoTr; sym__statementTr];
   STATE 11608 [sym_assignment]; STATE 11896 [sym_varAssignDef]; STATE 11608 [sym_varDef;
   sym_constDef]; STATE 5771 [sym_label]; STATE 7327 [sym__expr; sym_exprConditional];
   STATE 7013 [sym__ref; sym_lambda; sym_inherited; sym_exprDot; sym_exprDeref; sym_exprAs;
   sym_exprTpl; sym_exprSubscript; sym_exprCall]; STATE 7327 [sym_exprBinary; sym_exprUnary];
   STATE 7013 [sym_exprParens; sym_exprBrackets; sym__literal; sym_literalString];
   STATE 6066 [sym__literalString; sym_literalChar]; STATE 7013 [sym_literalNumber];
   STATE 7084 [sym__literalInt; sym__literalFloat];
   STATE 5771 [aux_sym_labeledStatement_repeat1]; STATE 6066 [aux_sym_literalString_repeat1];
   ACTIONS 4437 [anon_sym_SEMI]; ACTIONS 609 [anon_sym_LBRACK]; ACTIONS 611 [anon_sym_LPAREN];
   ACTIONS 613 [aux_sym__literalString_token1]; ACTIONS 615 [anon_sym_POUND];
   ACTIONS 617 [aux_sym__literalInt_token1]; ACTIONS 619 [aux_sym__literalInt_token2;
   aux_sym__literalInt_token3]; ACTIONS 617 [aux_sym__literalFloat_token1];
   ACTIONS 621 [sym_kAdd; sym_kSub]; ACTIONS 623 [sym_kAt]; ACTIONS 625 [sym_kTrue; sym_kFalse];
   ACTIONS 3783 [sym_labelNumber]; ACTIONS 3 [sym__space]; ACTIONS 5 [sym_ppDirective];
   ACTIONS 3 [sym_comment]; ACTIONS 625 [sym_ppFragmentExpr];
   ACTIONS 613 [sym__literalStringMultiline]; ACTIONS 3785 [sym_identifier];
   ACTIONS 631 [sym_kSpecialize]; ACTIONS 633 [sym_kAsm]; ACTIONS 635 [sym_kBegin];
   ACTIONS 637 [sym_kCase]; ACTIONS 639 [sym_kConst]; ACTIONS 4439 [sym_kEnd; sym_kFinalization];
   ACTIONS 643 [sym_kFor]; ACTIONS 645 [sym_kFunction]; ACTIONS 647 [sym_kGoto];
   ACTIONS 649 [sym_kIf]; ACTIONS 4439 [sym_kImplementation]; ACTIONS 651 [sym_kInherited];
   ACTIONS 4439 [sym_kInitialization; sym_kInterface]; ACTIONS 625 [sym_kNil];
   ACTIONS 623 [sym_kNot]; ACTIONS 645 [sym_kProcedure]; ACTIONS 653 [sym_kRaise];
   ACTIONS 655 [sym_kRepeat]; ACTIONS 657 [sym_kString]; ACTIONS 659 [sym_kTry];
   ACTIONS 661 [sym_kVar]; ACTIONS 663 [sym_kWhile]; ACTIONS 665 [sym_kWith]].

(** State 859. *)
Definition ts_parse_table_859 : parse_row :=
  [STATE 5784 [sym_if]; STATE 5736 [sym_ifElse; sym_while; sym_repeat; sym_for; sym_foreach;
   sym_try; sym_case; sym_block; sym_asm; sym_with; sym_raise; sym_statement; sym_goto;
   sym__statement]; STATE 11710 [sym_ifTr; sym_ifElseTr; sym_whileTr; sym_repeatTr; sym_forTr;
   sym_foreachTr; sym_tryTr; sym_caseTr]; STATE 11959 [sym_blockTr]; STATE 11710 [sym_asmTr;
   sym_withTr; sym_raiseTr; sym_statementTr; sym_gotoTr; sym__statementTr];
   STATE 11608 [sym_assignment]; STATE 11896 [sym_varAssignDef]; STATE 11608 [sym_varDef;
   sym_constDef]; STATE 858 [sym_label]; STATE 7327 [sym__expr; sym_exprConditional];
   STATE 7013 [sym__ref; sym_lambda; sym_inherited; sym_exprDot; sym_exprDeref; sym_exprAs;
   sym_exprTpl; sym_exprSubscript; sym_exprCall]; STATE 7327 [sym_exprBinary; sym_exprUnary];
   STATE 7013 [sym_exprParens; sym_exprBrackets; sym__literal; sym_literalString];
   STATE 6066 [sym__literalString; sym_literalChar]; STATE 7013 [sym_literalNumber];
   STATE 7084 [sym__literalInt; sym__literalFloat]; STATE 858 [aux_sym_labeledStatement_repeat1];
   STATE 6066 [aux_sym_literalString_repeat1]; ACTIONS 4299 [anon_sym_SEMI];
   ACTIONS 609 [anon_sym_LBRACK]; ACTIONS 611 [anon_sym_LPAREN];
   ACTIONS 613 [aux_sym__literalString_token1]; ACTIONS 615 [anon_sym_POUND];
   ACTIONS 617 [aux_sym__literalInt_token1]; ACTIONS 619 [aux_sym__literalInt_token2;
   aux_sym__literalInt_token3]; ACTIONS 617 [aux_sym__literalFloat_token1];
   ACTIONS 621 [sym_kAdd; sym_kSub]; ACTIONS 623 [sym_kAt]; ACTIONS 625 [sym_kTrue; sym_kFalse];
   ACTIONS 3783 [sym_labelNumber]; ACTIONS 3 [sym__space]; ACTIONS 5 [sym_ppDirective];
   ACTIONS 3 [sym_comment]; ACTIONS 625 [sym_ppFragmentExpr];
   ACTIONS 613 [sym__literalStringMultiline]; ACTIONS 3785 [sym_identifier];
   ACTIONS 631 [sym_kSpecialize]; ACTIONS 633 [sym_kAsm]; ACTIONS 635 [sym_kBegin];
   ACTIONS 637 [sym_kCase]; ACTIONS 639 [sym_kConst]; ACTIONS 4301 [sym_kEnd; sym_kFinalization];
   ACTIONS 643 [sym_kFor]; ACTIONS 645 [sym_kFunction]; ACTIONS 647 [sym_kGoto];
   ACTIONS 649 [sym_kIf]; ACTIONS 4301 [sym_kImplementation]; ACTIONS 651 [sym_kInherited];
   ACTIONS 4301 [sym_kInitialization; sym_kInterface]; ACTIONS 625 [sym_kNil];
   ACTIONS 623 [sym_kNot]; ACTIONS 645 [sym_kProcedure]; ACTIONS 653 [sym_kRaise];
   ACTIONS 655 [sym_kRepeat]; ACTIONS 657 [sym_kString]; ACTIONS 659 [sym_kTry];
   ACTIONS 661 [sym_kVar]; ACTIONS 663 [sym_kWhile]; ACTIONS 665 [sym_kWith]].

(** State 860. *)
Definition ts_parse_table_860 : parse_row :=
  [STATE 6273 [sym_if]; STATE 6231 [sym_ifElse; sym_while; sym_repeat; sym_for; sym_foreach;
   sym_try; sym_case; sym_block; sym_asm; sym_with; sym_raise; sym_statement; sym_goto;
   sym__statement]; STATE 15365 [sym_ifTr; sym_ifElseTr; sym_whileTr; sym_repeatTr; sym_forTr;
   sym_foreachTr; sym_tryTr; sym_caseTr]; STATE 14967 [sym_blockTr]; STATE 15365 [sym_asmTr;
   sym_withTr; sym_raiseTr; sym_statementTr; sym_gotoTr; sym__statementTr];
   STATE 13420 [sym_assignment]; STATE 11684 [sym_varAssignDef]; STATE 13420 [sym_varDef;
   sym_constDef]; STATE 6307 [sym_label]; STATE 8128 [sym__expr; sym_exprConditional];
   STATE 7533 [sym__ref; sym_lambda; sym_inherited; sym_exprDot; sym_exprDeref; sym_exprAs;
   sym_exprTpl; sym_exprSubscript; sym_exprCall]; STATE 8128 [sym_exprBinary; sym_exprUnary];
   STATE 7533 [sym_exprParens; sym_exprBrackets; sym__literal; sym_literalString];
   STATE 6915 [sym__literalString; sym_literalChar]; STATE 7533 [sym_literalNumber];
   STATE 7570 [sym__literalInt; sym__literalFloat]; STATE 1383 [sym__ppIf];
   STATE 6231 [sym__ppStatementBlock]; STATE 11976 [aux_sym_labeledStatement_repeat1];
   STATE 1395 [aux_sym__statementsTr_repeat1]; STATE 6915 [aux_sym_literalString_repeat1];
   ACTIONS 7384 [anon_sym_SEMI]; ACTIONS 927 [anon_sym_LBRACK]; ACTIONS 929 [anon_sym_LPAREN];
   ACTIONS 931 [aux_sym__literalString_token1]; ACTIONS 933 [anon_sym_POUND];
   ACTIONS 935 [aux_sym__literalInt_token1]; ACTIONS 937 [aux_sym__literalInt_token2;
   aux_sym__literalInt_token3]; ACTIONS 935 [aux_sym__literalFloat_token1];
   ACTIONS 411 [aux_sym_ppUsesBlock_token1]; ACTIONS 939 [sym_kAdd; sym_kSub];
   ACTIONS 941 [sym_kAt]; ACTIONS 943 [sym_kTrue; sym_kFalse]; ACTIONS 945 [sym_labelNumber];
   ACTIONS 3 [sym__space]; ACTIONS 5 [sym_ppDirective]; ACTIONS 3 [sym_comment];
   ACTIONS 943 [sym_ppFragmentExpr]; ACTIONS 7384 [sym_ppFragmentStmt];
   ACTIONS 931 [sym__literalStringMultiline]; ACTIONS 947 [sym_identifier];
   ACTIONS 949 [sym_kSpecialize]; ACTIONS 951 [sym_kAsm]; ACTIONS 953 [sym_kBegin];
   ACTIONS 955 [sym_kCase]; ACTIONS 957 [sym_kConst]; ACTIONS 959 [sym_kFor];
   ACTIONS 961 [sym_kFunction]; ACTIONS 963 [sym_kGoto]; ACTIONS 965 [sym_kIf];
   ACTIONS 967 [sym_kInherited]; ACTIONS 943 [sym_kNil]; ACTIONS 941 [sym_kNot];
   ACTIONS 961 [sym_kProcedure]; ACTIONS 969 [sym_kRaise]; ACTIONS 971 [sym_kRepeat];
   ACTIONS 973 [sym_kString]; ACTIONS 975 [sym_kTry]; ACTIONS 979 [sym_kVar];
   ACTIONS 981 [sym_kWhile]; ACTIONS 983 [sym_kWith]].

(** State 861. *)
Definition ts_parse_table_861 : parse_row :=
  [STATE 5784 [sym_if]; STATE 5766 [sym_ifElse; sym_while; sym_repeat; sym_for; sym_foreach;
   sym_try; sym_case; sym_block; sym_asm; sym_with; sym_raise; sym_statement; sym_goto;
   sym__statement]; STATE 11725 [sym_ifTr; sym_ifElseTr; sym_whileTr; sym_repeatTr; sym_forTr;
   sym_foreachTr; sym_tryTr; sym_caseTr]; STATE 11959 [sym_blockTr]; STATE 11725 [sym_asmTr;
   sym_withTr; sym_raiseTr; sym_statementTr; sym_gotoTr; sym__statementTr];
   STATE 11608 [sym_assignment]; STATE 11896 [sym_varAssignDef]; STATE 11608 [sym_varDef;
   sym_constDef]; STATE 5708 [sym_label]; STATE 7327 [sym__expr; sym_exprConditional];
   STATE 7013 [sym__ref; sym_lambda; sym_inherited; sym_exprDot; sym_exprDeref; sym_exprAs;
   sym_exprTpl; sym_exprSubscript; sym_exprCall]; STATE 7327 [sym_exprBinary; sym_exprUnary];
   STATE 7013 [sym_exprParens; sym_exprBrackets; sym__literal; sym_literalString];
   STATE 6066 [sym__literalString; sym_literalChar]; STATE 7013 [sym_literalNumber];
   STATE 7084 [sym__literalInt; sym__literalFloat]; STATE 1381 [sym__ppIf];
   STATE 5766 [sym__ppStatementBlock]; STATE 11114 [aux_sym_labeledStatement_repeat1];
   STATE 1395 [aux_sym__statementsTr_repeat1]; STATE 6066 [aux_sym_literalString_repeat1];
   ACTIONS 7386 [anon_sym_SEMI]; ACTIONS 609 [anon_sym_LBRACK]; ACTIONS 611 [anon_sym_LPAREN];
   ACTIONS 613 [aux_sym__literalString_token1]; ACTIONS 615 [anon_sym_POUND];
   ACTIONS 617 [aux_sym__literalInt_token1]; ACTIONS 619 [aux_sym__literalInt_token2;
   aux_sym__literalInt_token3]; ACTIONS 617 [aux_sym__literalFloat_token1];
   ACTIONS 411 [aux_sym_ppUsesBlock_token1]; ACTIONS 621 [sym_kAdd; sym_kSub];
   ACTIONS 623 [sym_kAt]; ACTIONS 625 [sym_kTrue; sym_kFalse]; ACTIONS 627 [sym_labelNumber];
   ACTIONS 3 [sym__space]; ACTIONS 5 [sym_ppDirective]; ACTIONS 3 [sym_comment];
   ACTIONS 625 [sym_ppFragmentExpr]; ACTIONS 7386 [sym_ppFragmentStmt];
   ACTIONS 613 [sym__literalStringMultiline]; ACTIONS 629 [sym_identifier];
   ACTIONS 631 [sym_kSpecialize]; ACTIONS 633 [sym_kAsm]; ACTIONS 635 [sym_kBegin];
   ACTIONS 637 [sym_kCase]; ACTIONS 639 [sym_kConst]; ACTIONS 643 [sym_kFor];
   ACTIONS 645 [sym_kFunction]; ACTIONS 647 [sym_kGoto]; ACTIONS 649 [sym_kIf];
   ACTIONS 651 [sym_kInherited]; ACTIONS 625 [sym_kNil]; ACTIONS 623 [sym_kNot];
   ACTIONS 645 [sym_kProcedure]; ACTIONS 653 [sym_kRaise]; ACTIONS 655 [sym_kRepeat];
   ACTIONS 657 [sym_kString]; ACTIONS 659 [sym_kTry]; ACTIONS 661 [sym_kVar];
   ACTIONS 663 [sym_kWhile]; ACTIONS 665 [sym_kWith]].

(** State 862. *)
Definition ts_parse_table_862 : parse_row :=
  [STATE 6061 [sym_if]; STATE 6038 [sym_ifElse; sym_while; sym_repeat; sym_for; sym_foreach;
   sym_try; sym_case; sym_block; sym_asm; sym_with; sym_raise; sym_statement; sym_goto;
   sym__statement]; STATE 13228 [sym_ifTr; sym_ifElseTr; sym_whileTr; sym_repeatTr; sym_forTr;
   sym_foreachTr; sym_tryTr; sym_caseTr]; STATE 13949 [sym_blockTr]; STATE 13228 [sym_asmTr;
   sym_withTr; sym_raiseTr; sym_statementTr; sym_gotoTr; sym__statementTr];
   STATE 12950 [sym_assignment]; STATE 11871 [sym_varAssignDef]; STATE 12950 [sym_varDef;
   sym_constDef]; STATE 6126 [sym_label]; STATE 7879 [sym__expr; sym_exprConditional];
   STATE 7259 [sym__ref; sym_lambda; sym_inherited; sym_exprDot; sym_exprDeref; sym_exprAs;
   sym_exprTpl; sym_exprSubscript; sym_exprCall]; STATE 7879 [sym_exprBinary; sym_exprUnary];
   STATE 7259 [sym_exprParens; sym_exprBrackets; sym__literal; sym_literalString];
   STATE 6541 [sym__literalString; sym_literalChar]; STATE 7259 [sym_literalNumber];
   STATE 7426 [sym__literalInt; sym__literalFloat]; STATE 1382 [sym__ppIf];
   STATE 6038 [sym__ppStatementBlock]; STATE 11589 [aux_sym_labeledStatement_repeat1];
   STATE 1395 [aux_sym__statementsTr_repeat1]; STATE 6541 [aux_sym_literalString_repeat1];
   ACTIONS 7388 [anon_sym_SEMI]; ACTIONS 673 [anon_sym_LBRACK]; ACTIONS 675 [anon_sym_LPAREN];
   ACTIONS 677 [aux_sym__literalString_token1]; ACTIONS 679 [anon_sym_POUND];
   ACTIONS 681 [aux_sym__literalInt_token1]; ACTIONS 683 [aux_sym__literalInt_token2;
   aux_sym__literalInt_token3]; ACTIONS 681 [aux_sym__literalFloat_token1];
   ACTIONS 411 [aux_sym_ppUsesBlock_token1]; ACTIONS 685 [sym_kAdd; sym_kSub];
   ACTIONS 687 [sym_kAt]; ACTIONS 689 [sym_kTrue; sym_kFalse]; ACTIONS 691 [sym_labelNumber];
   ACTIONS 3 [sym__space]; ACTIONS 5 [sym_ppDirective]; ACTIONS 3 [sym_comment];
   ACTIONS 689 [sym_ppFragmentExpr]; ACTIONS 7388 [sym_ppFragmentStmt];
   ACTIONS 677 [sym__literalStringMultiline]; ACTIONS 693 [sym_identifier];
   ACTIONS 695 [sym_kSpecialize]; ACTIONS 697 [sym_kAsm]; ACTIONS 699 [sym_kBegin];
   ACTIONS 701 [sym_kCase]; ACTIONS 703 [sym_kConst]; ACTIONS 709 [sym_kFor];
   ACTIONS 711 [sym_kFunction]; ACTIONS 713 [sym_kGoto]; ACTIONS 715 [sym_kIf];
   ACTIONS 717 [sym_kInherited]; ACTIONS 689 [sym_kNil]; ACTIONS 687 [sym_kNot];
   ACTIONS 711 [sym_kProcedure]; ACTIONS 719 [sym_kRaise]; ACTIONS 721 [sym_kRepeat];
   ACTIONS 723 [sym_kString]; ACTIONS 725 [sym_kTry]; ACTIONS 727 [sym_kVar];
   ACTIONS 729 [sym_kWhile]; ACTIONS 731 [sym_kWith]].

(** State 863. *)
Definition ts_parse_table_863 : parse_row :=
  [STATE 6213 [sym_if]; STATE 6297 [sym_ifElse; sym_while; sym_repeat; sym_for; sym_foreach;
   sym_try; sym_case; sym_block; sym_asm; sym_with; sym_raise; sym_statement; sym_goto;
   sym__statement]; STATE 15389 [sym_ifTr; sym_ifElseTr; sym_whileTr; sym_repeatTr; sym_forTr;
   sym_foreachTr; sym_tryTr; sym_caseTr]; STATE 14251 [sym_blockTr]; STATE 15389 [sym_asmTr;
   sym_withTr; sym_raiseTr; sym_statementTr; sym_gotoTr; sym__statementTr];
   STATE 13915 [sym_assignment]; STATE 11785 [sym_varAssignDef]; STATE 13915 [sym_varDef;
   sym_constDef]; STATE 6166 [sym_label]; STATE 8019 [sym__expr; sym_exprConditional];
   STATE 7478 [sym__ref; sym_lambda; sym_inherited; sym_exprDot; sym_exprDeref; sym_exprAs;
   sym_exprTpl; sym_exprSubscript; sym_exprCall]; STATE 8019 [sym_exprBinary; sym_exprUnary];
   STATE 7478 [sym_exprParens; sym_exprBrackets; sym__literal; sym_literalString];
   STATE 6664 [sym__literalString; sym_literalChar]; STATE 7478 [sym_literalNumber];
   STATE 7742 [sym__literalInt; sym__literalFloat]; STATE 1380 [sym__ppIf];
   STATE 6297 [sym__ppStatementBlock]; STATE 11826 [aux_sym_labeledStatement_repeat1];
   STATE 1395 [aux_sym__statementsTr_repeat1]; STATE 6664 [aux_sym_literalString_repeat1];
   ACTIONS 7390 [anon_sym_SEMI]; ACTIONS 399 [anon_sym_LBRACK]; ACTIONS 401 [anon_sym_LPAREN];
   ACTIONS 403 [aux_sym__literalString_token1]; ACTIONS 405 [anon_sym_POUND];
   ACTIONS 407 [aux_sym__literalInt_token1]; ACTIONS 409 [aux_sym__literalInt_token2;
   aux_sym__literalInt_token3]; ACTIONS 407 [aux_sym__literalFloat_token1];
   ACTIONS 411 [aux_sym_ppUsesBlock_token1]; ACTIONS 413 [sym_kAdd; sym_kSub];
   ACTIONS 415 [sym_kAt]; ACTIONS 417 [sym_kTrue; sym_kFalse]; ACTIONS 419 [sym_labelNumber];
   ACTIONS 3 [sym__space]; ACTIONS 5 [sym_ppDirective]; ACTIONS 3 [sym_comment];
   ACTIONS 417 [sym_ppFragmentExpr]; ACTIONS 7390 [sym_ppFragmentStmt];
   ACTIONS 403 [sym__literalStringMultiline]; ACTIONS 421 [sym_identifier];
   ACTIONS 423 [sym_kSpecialize]; ACTIONS 427 [sym_kAsm]; ACTIONS 429 [sym_kBegin];
   ACTIONS 431 [sym_kCase]; ACTIONS 433 [sym_kConst]; ACTIONS 437 [sym_kFor];
   ACTIONS 439 [sym_kFunction]; ACTIONS 441 [sym_kGoto]; ACTIONS 443 [sym_kIf];
   ACTIONS 445 [sym_kInherited]; ACTIONS 417 [sym_kNil]; ACTIONS 415 [sym_kNot];
   ACTIONS 439 [sym_kProcedure]; ACTIONS 447 [sym_kRaise]; ACTIONS 449 [sym_kRepeat];
   ACTIONS 451 [sym_kString]; ACTIONS 453 [sym_kTry]; ACTIONS 455 [sym_kVar];
   ACTIONS 457 [sym_kWhile]; ACTIONS 459 [sym_kWith]].

(** State 864. *)
Definition ts_parse_table_864 : parse_row :=
  [STATE 1266 [sym__procAttribute]; STATE 15237 [sym_procAttribute];
   STATE 912 [aux_sym_declProcFwd_repeat1]; ACTIONS 7392 [anon_sym_SEMI; anon_sym_COMMA];
   ACTIONS 7394 [anon_sym_LBRACK]; ACTIONS 7397 [anon_sym_LPAREN];
   ACTIONS 7392 [aux_sym__literalString_token1; anon_sym_POUND];
   ACTIONS 7397 [aux_sym__literalInt_token1]; ACTIONS 7392 [aux_sym__literalInt_token2;
   aux_sym__literalInt_token3]; ACTIONS 7397 [aux_sym__literalFloat_token1];
   ACTIONS 7392 [aux_sym_ppUsesBlock_token1; aux_sym_ppUsesBlock_token2;
   aux_sym_ppUsesBlock_token3]; ACTIONS 7397 [sym_kAdd; sym_kSub]; ACTIONS 7392 [sym_kAt;
   sym_kTrue; sym_kFalse]; ACTIONS 3 [sym__space]; ACTIONS 5 [sym_ppDirective];
   ACTIONS 3 [sym_comment]; ACTIONS 7392 [sym_ppFragmentExpr; sym__literalStringMultiline;
   sym_identifier]; ACTIONS 7399 [sym_kDefault; sym_kNodefault]; ACTIONS 7402 [sym_kDispId];
   ACTIONS 7392 [sym_kGeneric; sym_kSpecialize; sym_kOperator]; ACTIONS 7405 [sym_kPublic];
   ACTIONS 7399 [sym_kStatic; sym_kVirtual; sym_kAbstract; sym_kDynamic; sym_kOverride;
   sym_kOverload; sym_kReintroduce; sym_kStdcall; sym_kCdecl; sym_kCppdecl; sym_kPascal;
   sym_kRegister; sym_kMwpascal]; ACTIONS 7408 [sym_kMessage]; ACTIONS 7411 [sym_kDeprecated];
   ACTIONS 7399 [sym_kExperimental; sym_kPlatform; sym_kUnimplemented; sym_kCvar];
   ACTIONS 7414 [sym_kExport]; ACTIONS 7399 [sym_kFar; sym_kNear; sym_kSafecall; sym_kAssembler;
   sym_kNostackframe; sym_kInterrupt; sym_kNoreturn; sym_kIocheck; sym_kLocal; sym_kHardfloat;
   sym_kSoftfloat; sym_kMs_abi_default; sym_kMs_abi_cdecl; sym_kSaveregisters;
   sym_kSysv_abi_default; sym_kSysv_abi_cdecl; sym_kVectorcall; sym_kVarargs; sym_kWinapi];
   ACTIONS 7417 [sym_kAlias]; ACTIONS 7392 [sym_kAsm; sym_kBegin; sym_kCase; sym_kClass;
   sym_kConst; sym_kConstructor; sym_kDestructor; sym_kExports; sym_kFor; sym_kFunction;
   sym_kGoto; sym_kIf; sym_kInherited]; ACTIONS 1016 [sym_kInline]; ACTIONS 7392 [sym_kLabel;
   sym_kNil; sym_kNot; sym_kProcedure; sym_kProperty; sym_kRaise; sym_kRepeat;
   sym_kResourcestring; sym_kString; sym_kThreadvar; sym_kTry; sym_kType; sym_kUses; sym_kVar;
   sym_kWhile; sym_kWith]].

(** State 865. *)
Definition ts_parse_table_865 : parse_row :=
  [STATE 5885 [sym_if]; STATE 5956 [sym_ifElse; sym_while; sym_repeat; sym_for; sym_foreach;
   sym_try; sym_case; sym_block; sym_asm; sym_with; sym_raise; sym_statement; sym_goto;
   sym_labeledStatement; sym__statement]; STATE 12897 [sym_ifTr; sym_ifElseTr; sym_whileTr;
   sym_repeatTr; sym_forTr; sym_foreachTr; sym_tryTr; sym_caseTr]; STATE 12758 [sym_blockTr];
   STATE 12897 [sym_asmTr; sym_withTr; sym_raiseTr; sym_statementTr; sym_gotoTr;
   sym_labeledStatementTr; sym__statementTr]; STATE 12111 [sym_assignment];
   STATE 11928 [sym_varAssignDef]; STATE 12111 [sym_varDef; sym_constDef];
   STATE 1010 [sym_label]; STATE 7752 [sym__expr; sym_exprConditional]; STATE 7153 [sym__ref;
   sym_lambda; sym_inherited; sym_exprDot; sym_exprDeref; sym_exprAs; sym_exprTpl;
   sym_exprSubscript; sym_exprCall]; STATE 7752 [sym_exprBinary; sym_exprUnary];
   STATE 7153 [sym_exprParens; sym_exprBrackets; sym__literal; sym_literalString];
   STATE 6416 [sym__literalString; sym_literalChar]; STATE 7153 [sym_literalNumber];
   STATE 7250 [sym__literalInt; sym__literalFloat]; STATE 6416 [aux_sym_literalString_repeat1];
   ACTIONS 7420 [anon_sym_SEMI]; ACTIONS 7422 [anon_sym_LBRACK]; ACTIONS 7424 [anon_sym_LPAREN];
   ACTIONS 7426 [aux_sym__literalString_token1]; ACTIONS 7428 [anon_sym_POUND];
   ACTIONS 7430 [aux_sym__literalInt_token1]; ACTIONS 7432 [aux_sym__literalInt_token2;
   aux_sym__literalInt_token3]; ACTIONS 7430 [aux_sym__literalFloat_token1];
   ACTIONS 7434 [sym_kAdd; sym_kSub]; ACTIONS 7436 [sym_kAt]; ACTIONS 7438 [sym_kTrue;
   sym_kFalse]; ACTIONS 7440 [sym_labelNumber]; ACTIONS 3 [sym__space];
   ACTIONS 5 [sym_ppDirective]; ACTIONS 3 [sym_comment]; ACTIONS 7438 [sym_ppFragmentExpr];
   ACTIONS 7426 [sym__literalStringMultiline]; ACTIONS 7442 [sym_identifier];
   ACTIONS 7444 [sym_kSpecialize]; ACTIONS 7446 [sym_kAsm]; ACTIONS 7448 [sym_kBegin];
   ACTIONS 7450 [sym_kCase]; ACTIONS 7452 [sym_kConst]; ACTIONS 3272 [sym_kElse; sym_kExcept;
   sym_kFinally]; ACTIONS 7454 [sym_kFor]; ACTIONS 7456 [sym_kFunction];
   ACTIONS 7458 [sym_kGoto]; ACTIONS 7460 [sym_kIf]; ACTIONS 7462 [sym_kInherited];
   ACTIONS 7438 [sym_kNil]; ACTIONS 7436 [sym_kNot]; ACTIONS 7456 [sym_kProcedure];
   ACTIONS 7464 [sym_kRaise]; ACTIONS 7466 [sym_kRepeat]; ACTIONS 7468 [sym_kString];
   ACTIONS 7470 [sym_kTry]; ACTIONS 7472 [sym_kVar]; ACTIONS 7474 [sym_kWhile];
   ACTIONS 7476 [sym_kWith]].

(** State 866. *)
Definition ts_parse_table_866 : parse_row :=
  [STATE 5885 [sym_if]; STATE 5958 [sym_ifElse; sym_while; sym_repeat; sym_for; sym_foreach;
   sym_try; sym_case; sym_block; sym_asm; sym_with; sym_raise; sym_statement; sym_goto;
   sym_labeledStatement; sym__statement]; STATE 12904 [sym_ifTr; sym_ifElseTr; sym_whileTr;
   sym_repeatTr; sym_forTr; sym_foreachTr; sym_tryTr; sym_caseTr]; STATE 12758 [sym_blockTr];
   STATE 12904 [sym_asmTr; sym_withTr; sym_raiseTr; sym_statementTr; sym_gotoTr;
   sym_labeledStatementTr; sym__statementTr]; STATE 12111 [sym_assignment];
   STATE 11928 [sym_varAssignDef]; STATE 12111 [sym_varDef; sym_constDef];
   STATE 1010 [sym_label]; STATE 7752 [sym__expr; sym_exprConditional]; STATE 7153 [sym__ref;
   sym_lambda; sym_inherited; sym_exprDot; sym_exprDeref; sym_exprAs; sym_exprTpl;
   sym_exprSubscript; sym_exprCall]; STATE 7752 [sym_exprBinary; sym_exprUnary];
   STATE 7153 [sym_exprParens; sym_exprBrackets; sym__literal; sym_literalString];
   STATE 6416 [sym__literalString; sym_literalChar]; STATE 7153 [sym_literalNumber];
   STATE 7250 [sym__literalInt; sym__literalFloat]; STATE 6416 [aux_sym_literalString_repeat1];
   ACTIONS 7478 [anon_sym_SEMI]; ACTIONS 7422 [anon_sym_LBRACK]; ACTIONS 7424 [anon_sym_LPAREN];
   ACTIONS 7426 [aux_sym__literalString_token1]; ACTIONS 7428 [anon_sym_POUND];
   ACTIONS 7430 [aux_sym__literalInt_token1]; ACTIONS 7432 [aux_sym__literalInt_token2;
   aux_sym__literalInt_token3]; ACTIONS 7430 [aux_sym__literalFloat_token1];
   ACTIONS 7434 [sym_kAdd; sym_kSub]; ACTIONS 7436 [sym_kAt]; ACTIONS 7438 [sym_kTrue;
   sym_kFalse]; ACTIONS 7440 [sym_labelNumber]; ACTIONS 3 [sym__space];
   ACTIONS 5 [sym_ppDirective]; ACTIONS 3 [sym_comment]; ACTIONS 7438 [sym_ppFragmentExpr];
   ACTIONS 7426 [sym__literalStringMultiline]; ACTIONS 7442 [sym_identifier];
   ACTIONS 7444 [sym_kSpecialize]; ACTIONS 7446 [sym_kAsm]; ACTIONS 7448 [sym_kBegin];
   ACTIONS 7450 [sym_kCase]; ACTIONS 7452 [sym_kConst]; ACTIONS 3278 [sym_kElse; sym_kExcept;
   sym_kFinally]; ACTIONS 7454 [sym_kFor]; ACTIONS 7456 [sym_kFunction];
   ACTIONS 7458 [sym_kGoto]; ACTIONS 7460 [sym_kIf]; ACTIONS 7462 [sym_kInherited];
   ACTIONS 7438 [sym_kNil]; ACTIONS 7436 [sym_kNot]; ACTIONS 7456 [sym_kProcedure];
   ACTIONS 7464 [sym_kRaise]; ACTIONS 7466 [sym_kRepeat]; ACTIONS 7468 [sym_kString];
   ACTIONS 7470 [sym_kTry]; ACTIONS 7472 [sym_kVar]; ACTIONS 7474 [sym_kWhile];
   ACTIONS 7476 [sym_kWith]].

(** State 867. *)
Definition ts_parse_table_867 : parse_row :=
  [STATE 5885 [sym_if]; STATE 5971 [sym_ifElse; sym_while; sym_repeat; sym_for; sym_foreach;
   sym_try; sym_case; sym_block; sym_asm; sym_with; sym_raise; sym_statement; sym_goto;
   sym_labeledStatement; sym__statement]; STATE 12948 [sym_ifTr; sym_ifElseTr; sym_whileTr;
   sym_repeatTr; sym_forTr; sym_foreachTr; sym_tryTr; sym_caseTr]; STATE 12758 [sym_blockTr];
   STATE 12948 [sym_asmTr; sym_withTr; sym_raiseTr; sym_statementTr; sym_gotoTr;
   sym_labeledStatementTr; sym__statementTr]; STATE 12111 [sym_assignment];
   STATE 11928 [sym_varAssignDef]; STATE 12111 [sym_varDef; sym_constDef];
   STATE 1010 [sym_label]; STATE 7752 [sym__expr; sym_exprConditional]; STATE 7153 [sym__ref;
   sym_lambda; sym_inherited; sym_exprDot; sym_exprDeref; sym_exprAs; sym_exprTpl;
   sym_exprSubscript; sym_exprCall]; STATE 7752 [sym_exprBinary; sym_exprUnary];
   STATE 7153 [sym_exprParens; sym_exprBrackets; sym__literal; sym_literalString];
   STATE 6416 [sym__literalString; sym_literalChar]; STATE 7153 [sym_literalNumber];
   STATE 7250 [sym__literalInt; sym__literalFloat]; STATE 6416 [aux_sym_literalString_repeat1];
   ACTIONS 7480 [anon_sym_SEMI]; ACTIONS 7422 [anon_sym_LBRACK]; ACTIONS 7424 [anon_sym_LPAREN];
   ACTIONS 7426 [aux_sym__literalString_token1]; ACTIONS 7428 [anon_sym_POUND];
   ACTIONS 7430 [aux_sym__literalInt_token1]; ACTIONS 7432 [aux_sym__literalInt_token2;
   aux_sym__literalInt_token3]; ACTIONS 7430 [aux_sym__literalFloat_token1];
   ACTIONS 7434 [sym_kAdd; sym_kSub]; ACTIONS 7436 [sym_kAt]; ACTIONS 7438 [sym_kTrue;
   sym_kFalse]; ACTIONS 7440 [sym_labelNumber]; ACTIONS 3 [sym__space];
   ACTIONS 5 [sym_ppDirective]; ACTIONS 3 [sym_comment]; ACTIONS 7438 [sym_ppFragmentExpr];
   ACTIONS 7426 [sym__literalStringMultiline]; ACTIONS 7442 [sym_identifier];
   ACTIONS 7444 [sym_kSpecialize]; ACTIONS 7446 [sym_kAsm]; ACTIONS 7448 [sym_kBegin];
   ACTIONS 7450 [sym_kCase]; ACTIONS 7452 [sym_kConst]; ACTIONS 3282 [sym_kElse; sym_kExcept;
   sym_kFinally]; ACTIONS 7454 [sym_kFor]; ACTIONS 7456 [sym_kFunction];
   ACTIONS 7458 [sym_kGoto]; ACTIONS 7460 [sym_kIf]; ACTIONS 7462 [sym_kInherited];
   ACTIONS 7438 [sym_kNil]; ACTIONS 7436 [sym_kNot]; ACTIONS 7456 [sym_kProcedure];
   ACTIONS 7464 [sym_kRaise]; ACTIONS 7466 [sym_kRepeat]; ACTIONS 7468 [sym_kString];
   ACTIONS 7470 [sym_kTry]; ACTIONS 7472 [sym_kVar]; ACTIONS 7474 [sym_kWhile];
   ACTIONS 7476 [sym_kWith]].

(** State 868. *)
Definition ts_parse_table_868 : parse_row :=
  [STATE 5885 [sym_if]; STATE 5990 [sym_ifElse; sym_while; sym_repeat; sym_for; sym_foreach;
   sym_try; sym_case; sym_block; sym_asm; sym_with; sym_raise; sym_statement; sym_goto];
   STATE 5988 [sym_labeledStatement]; STATE 5990 [sym__statement]; STATE 12966 [sym_ifTr;
   sym_ifElseTr; sym_whileTr; sym_repeatTr; sym_forTr; sym_foreachTr; sym_tryTr; sym_caseTr];
   STATE 12758 [sym_blockTr]; STATE 12966 [sym_asmTr; sym_withTr; sym_raiseTr; sym_statementTr;
   sym_gotoTr]; STATE 12964 [sym_labeledStatementTr]; STATE 12966 [sym__statementTr];
   STATE 12111 [sym_assignment]; STATE 11928 [sym_varAssignDef]; STATE 12111 [sym_varDef;
   sym_constDef]; STATE 1010 [sym_label]; STATE 7752 [sym__expr; sym_exprConditional];
   STATE 7153 [sym__ref; sym_lambda; sym_inherited; sym_exprDot; sym_exprDeref; sym_exprAs;
   sym_exprTpl; sym_exprSubscript; sym_exprCall]; STATE 7752 [sym_exprBinary; sym_exprUnary];
   STATE 7153 [sym_exprParens; sym_exprBrackets; sym__literal; sym_literalString];
   STATE 6416 [sym__literalString; sym_literalChar]; STATE 7153 [sym_literalNumber];
   STATE 7250 [sym__literalInt; sym__literalFloat]; STATE 6416 [aux_sym_literalString_repeat1];
   ACTIONS 7482 [anon_sym_SEMI]; ACTIONS 7422 [anon_sym_LBRACK]; ACTIONS 7424 [anon_sym_LPAREN];
   ACTIONS 7426 [aux_sym__literalString_token1]; ACTIONS 7428 [anon_sym_POUND];
   ACTIONS 7430 [aux_sym__literalInt_token1]; ACTIONS 7432 [aux_sym__literalInt_token2;
   aux_sym__literalInt_token3]; ACTIONS 7430 [aux_sym__literalFloat_token1];
   ACTIONS 7434 [sym_kAdd; sym_kSub]; ACTIONS 7436 [sym_kAt]; ACTIONS 7438 [sym_kTrue;
   sym_kFalse]; ACTIONS 7440 [sym_labelNumber]; ACTIONS 3 [sym__space];
   ACTIONS 5 [sym_ppDirective]; ACTIONS 3 [sym_comment]; ACTIONS 7438 [sym_ppFragmentExpr];
   ACTIONS 7426 [sym__literalStringMultiline]; ACTIONS 7442 [sym_identifier];
   ACTIONS 7444 [sym_kSpecialize]; ACTIONS 7446 [sym_kAsm]; ACTIONS 7448 [sym_kBegin];
   ACTIONS 7450 [sym_kCase]; ACTIONS 7452 [sym_kConst]; ACTIONS 3286 [sym_kElse; sym_kExcept;
   sym_kFinally]; ACTIONS 7454 [sym_kFor]; ACTIONS 7456 [sym_kFunction];
   ACTIONS 7458 [sym_kGoto]; ACTIONS 7460 [sym_kIf]; ACTIONS 7462 [sym_kInherited];
   ACTIONS 7438 [sym_kNil]; ACTIONS 7436 [sym_kNot]; ACTIONS 7456 [sym_kProcedure];
   ACTIONS 7464 [sym_kRaise]; ACTIONS 7466 [sym_kRepeat]; ACTIONS 7468 [sym_kString];
   ACTIONS 7470 [sym_kTry]; ACTIONS 7472 [sym_kVar]; ACTIONS 7474 [sym_kWhile];
   ACTIONS 7476 [sym_kWith]].

(** State 869. *)
Definition ts_parse_table_869 : parse_row :=
  [STATE 5885 [sym_if]; STATE 5994 [sym_ifElse; sym_while; sym_repeat; sym_for; sym_foreach;
   sym_try; sym_case; sym_block; sym_asm; sym_with; sym_raise; sym_statement; sym_goto;
   sym_labeledStatement; sym__statement]; STATE 12980 [sym_ifTr; sym_ifElseTr; sym_whileTr;
   sym_repeatTr; sym_forTr; sym_foreachTr; sym_tryTr; sym_caseTr]; STATE 12758 [sym_blockTr];
   STATE 12980 [sym_asmTr; sym_withTr; sym_raiseTr; sym_statementTr; sym_gotoTr;
   sym_labeledStatementTr; sym__statementTr]; STATE 12111 [sym_assignment];
   STATE 11928 [sym_varAssignDef]; STATE 12111 [sym_varDef; sym_constDef];
   STATE 1010 [sym_label]; STATE 7752 [sym__expr; sym_exprConditional]; STATE 7153 [sym__ref;
   sym_lambda; sym_inherited; sym_exprDot; sym_exprDeref; sym_exprAs; sym_exprTpl;
   sym_exprSubscript; sym_exprCall]; STATE 7752 [sym_exprBinary; sym_exprUnary];
   STATE 7153 [sym_exprParens; sym_exprBrackets; sym__literal; sym_literalString];
   STATE 6416 [sym__literalString; sym_literalChar]; STATE 7153 [sym_literalNumber];
   STATE 7250 [sym__literalInt; sym__literalFloat]; STATE 6416 [aux_sym_literalString_repeat1];
   ACTIONS 7484 [anon_sym_SEMI]; ACTIONS 7422 [anon_sym_LBRACK]; ACTIONS 7424 [anon_sym_LPAREN];
   ACTIONS 7426 [aux_sym__literalString_token1]; ACTIONS 7428 [anon_sym_POUND];
   ACTIONS 7430 [aux_sym__literalInt_token1]; ACTIONS 7432 [aux_sym__literalInt_token2;
   aux_sym__literalInt_token3]; ACTIONS 7430 [aux_sym__literalFloat_token1];
   ACTIONS 7434 [sym_kAdd; sym_kSub]; ACTIONS 7436 [sym_kAt]; ACTIONS 7438 [sym_kTrue;
   sym_kFalse]; ACTIONS 7440 [sym_labelNumber]; ACTIONS 3 [sym__space];
   ACTIONS 5 [sym_ppDirective]; ACTIONS 3 [sym_comment]; ACTIONS 7438 [sym_ppFragmentExpr];
   ACTIONS 7426 [sym__literalStringMultiline]; ACTIONS 7442 [sym_identifier];
   ACTIONS 7444 [sym_kSpecialize]; ACTIONS 7446 [sym_kAsm]; ACTIONS 7448 [sym_kBegin];
   ACTIONS 7450 [sym_kCase]; ACTIONS 7452 [sym_kConst]; ACTIONS 3290 [sym_kElse; sym_kExcept;
   sym_kFinally]; ACTIONS 7454 [sym_kFor]; ACTIONS 7456 [sym_kFunction];
   ACTIONS 7458 [sym_kGoto]; ACTIONS 7460 [sym_kIf]; ACTIONS 7462 [sym_kInherited];
   ACTIONS 7438 [sym_kNil]; ACTIONS 7436 [sym_kNot]; ACTIONS 7456 [sym_kProcedure];
   ACTIONS 7464 [sym_kRaise]; ACTIONS 7466 [sym_kRepeat]; ACTIONS 7468 [sym_kString];
   ACTIONS 7470 [sym_kTry]; ACTIONS 7472 [sym_kVar]; ACTIONS 7474 [sym_kWhile];
   ACTIONS 7476 [sym_kWith]].

(** State 870. *)
Definition ts_parse_table_870 : parse_row :=
  [STATE 5885 [sym_if]; STATE 5996 [sym_ifElse; sym_while; sym_repeat; sym_for; sym_foreach;
   sym_try; sym_case; sym_block; sym_asm; sym_with; sym_raise; sym_statement; sym_goto;
   sym_labeledStatement; sym__statement]; STATE 12984 [sym_ifTr; sym_ifElseTr; sym_whileTr;
   sym_repeatTr; sym_forTr; sym_foreachTr; sym_tryTr; sym_caseTr]; STATE 12758 [sym_blockTr];
   STATE 12984 [sym_asmTr; sym_withTr; sym_raiseTr; sym_statementTr; sym_gotoTr;
   sym_labeledStatementTr; sym__statementTr]; STATE 12111 [sym_assignment];
   STATE 11928 [sym_varAssignDef]; STATE 12111 [sym_varDef; sym_constDef];
   STATE 1010 [sym_label]; STATE 7752 [sym__expr; sym_exprConditional]; STATE 7153 [sym__ref;
   sym_lambda; sym_inherited; sym_exprDot; sym_exprDeref; sym_exprAs; sym_exprTpl;
   sym_exprSubscript; sym_exprCall]; STATE 7752 [sym_exprBinary; sym_exprUnary];
   STATE 7153 [sym_exprParens; sym_exprBrackets; sym__literal; sym_literalString];
   STATE 6416 [sym__literalString; sym_literalChar]; STATE 7153 [sym_literalNumber];
   STATE 7250 [sym__literalInt; sym__literalFloat]; STATE 6416 [aux_sym_literalString_repeat1];
   ACTIONS 7486 [anon_sym_SEMI]; ACTIONS 7422 [anon_sym_LBRACK]; ACTIONS 7424 [anon_sym_LPAREN];
   ACTIONS 7426 [aux_sym__literalString_token1]; ACTIONS 7428 [anon_sym_POUND];
   ACTIONS 7430 [aux_sym__literalInt_token1]; ACTIONS 7432 [aux_sym__literalInt_token2;
   aux_sym__literalInt_token3]; ACTIONS 7430 [aux_sym__literalFloat_token1];
   ACTIONS 7434 [sym_kAdd; sym_kSub]; ACTIONS 7436 [sym_kAt]; ACTIONS 7438 [sym_kTrue;
   sym_kFalse]; ACTIONS 7440 [sym_labelNumber]; ACTIONS 3 [sym__space];
   ACTIONS 5 [sym_ppDirective]; ACTIONS 3 [sym_comment]; ACTIONS 7438 [sym_ppFragmentExpr];
   ACTIONS 7426 [sym__literalStringMultiline]; ACTIONS 7442 [sym_identifier];
   ACTIONS 7444 [sym_kSpecialize]; ACTIONS 7446 [sym_kAsm]; ACTIONS 7448 [sym_kBegin];
   ACTIONS 7450 [sym_kCase]; ACTIONS 7452 [sym_kConst]; ACTIONS 3296 [sym_kElse; sym_kExcept;
   sym_kFinally]; ACTIONS 7454 [sym_kFor]; ACTIONS 7456 [sym_kFunction];
   ACTIONS 7458 [sym_kGoto]; ACTIONS 7460 [sym_kIf]; ACTIONS 7462 [sym_kInherited];
   ACTIONS 7438 [sym_kNil]; ACTIONS 7436 [sym_kNot]; ACTIONS 7456 [sym_kProcedure];
   ACTIONS 7464 [sym_kRaise]; ACTIONS 7466 [sym_kRepeat]; ACTIONS 7468 [sym_kString];
   ACTIONS 7470 [sym_kTry]; ACTIONS 7472 [sym_kVar]; ACTIONS 7474 [sym_kWhile];
   ACTIONS 7476 [sym_kWith]].

(** State 871. *)
Definition ts_parse_table_871 : parse_row :=
  [STATE 5885 [sym_if]; STATE 5889 [sym_ifElse; sym_while; sym_repeat; sym_for; sym_foreach;
   sym_try; sym_case; sym_block; sym_asm; sym_with; sym_raise; sym_statement; sym_goto;
   sym_labeledStatement; sym__statement]; STATE 12962 [sym_ifTr; sym_ifElseTr; sym_whileTr;
   sym_repeatTr; sym_forTr; sym_foreachTr; sym_tryTr; sym_caseTr]; STATE 12758 [sym_blockTr];
   STATE 12962 [sym_asmTr; sym_withTr; sym_raiseTr; sym_statementTr; sym_gotoTr;
   sym_labeledStatementTr; sym__statementTr]; STATE 12111 [sym_assignment];
   STATE 11928 [sym_varAssignDef]; STATE 12111 [sym_varDef; sym_constDef];
   STATE 1010 [sym_label]; STATE 7752 [sym__expr; sym_exprConditional]; STATE 7153 [sym__ref;
   sym_lambda; sym_inherited; sym_exprDot; sym_exprDeref; sym_exprAs; sym_exprTpl;
   sym_exprSubscript; sym_exprCall]; STATE 7752 [sym_exprBinary; sym_exprUnary];
   STATE 7153 [sym_exprParens; sym_exprBrackets; sym__literal; sym_literalString];
   STATE 6416 [sym__literalString; sym_literalChar]; STATE 7153 [sym_literalNumber];
   STATE 7250 [sym__literalInt; sym__literalFloat]; STATE 6416 [aux_sym_literalString_repeat1];
   ACTIONS 7488 [anon_sym_SEMI]; ACTIONS 7422 [anon_sym_LBRACK]; ACTIONS 7424 [anon_sym_LPAREN];
   ACTIONS 7426 [aux_sym__literalString_token1]; ACTIONS 7428 [anon_sym_POUND];
   ACTIONS 7430 [aux_sym__literalInt_token1]; ACTIONS 7432 [aux_sym__literalInt_token2;
   aux_sym__literalInt_token3]; ACTIONS 7430 [aux_sym__literalFloat_token1];
   ACTIONS 7434 [sym_kAdd; sym_kSub]; ACTIONS 7436 [sym_kAt]; ACTIONS 7438 [sym_kTrue;
   sym_kFalse]; ACTIONS 7440 [sym_labelNumber]; ACTIONS 3 [sym__space];
   ACTIONS 5 [sym_ppDirective]; ACTIONS 3 [sym_comment]; ACTIONS 7438 [sym_ppFragmentExpr];
   ACTIONS 7426 [sym__literalStringMultiline]; ACTIONS 7442 [sym_identifier];
   ACTIONS 7444 [sym_kSpecialize]; ACTIONS 7446 [sym_kAsm]; ACTIONS 7448 [sym_kBegin];
   ACTIONS 7450 [sym_kCase]; ACTIONS 7452 [sym_kConst]; ACTIONS 3304 [sym_kElse; sym_kExcept;
   sym_kFinally]; ACTIONS 7454 [sym_kFor]; ACTIONS 7456 [sym_kFunction];
   ACTIONS 7458 [sym_kGoto]; ACTIONS 7460 [sym_kIf]; ACTIONS 7462 [sym_kInherited];
   ACTIONS 7438 [sym_kNil]; ACTIONS 7436 [sym_kNot]; ACTIONS 7456 [sym_kProcedure];
   ACTIONS 7464 [sym_kRaise]; ACTIONS 7466 [sym_kRepeat]; ACTIONS 7468 [sym_kString];
   ACTIONS 7470 [sym_kTry]; ACTIONS 7472 [sym_kVar]; ACTIONS 7474 [sym_kWhile];
   ACTIONS 7476 [sym_kWith]].

(** State 872. *)
Definition ts_parse_table_872 : parse_row :=
  [STATE 1266 [sym__procAttribute]; STATE 15237 [sym_procAttribute];
   STATE 912 [aux_sym_declProcFwd_repeat1]; ACTIONS 7490 [anon_sym_SEMI; anon_sym_COMMA];
   ACTIONS 7492 [anon_sym_LBRACK]; ACTIONS 7495 [anon_sym_LPAREN];
   ACTIONS 7490 [aux_sym__literalString_token1; anon_sym_POUND];
   ACTIONS 7495 [aux_sym__literalInt_token1]; ACTIONS 7490 [aux_sym__literalInt_token2;
   aux_sym__literalInt_token3]; ACTIONS 7495 [aux_sym__literalFloat_token1];
   ACTIONS 7490 [aux_sym_ppUsesBlock_token1; aux_sym_ppUsesBlock_token2;
   aux_sym_ppUsesBlock_token3]; ACTIONS 7495 [sym_kAdd; sym_kSub]; ACTIONS 7490 [sym_kAt;
   sym_kTrue; sym_kFalse]; ACTIONS 3 [sym__space]; ACTIONS 5 [sym_ppDirective];
   ACTIONS 3 [sym_comment]; ACTIONS 7490 [sym_ppFragmentExpr; sym__literalStringMultiline;
   sym_identifier]; ACTIONS 7497 [sym_kDefault; sym_kNodefault]; ACTIONS 7500 [sym_kDispId];
   ACTIONS 7490 [sym_kGeneric; sym_kSpecialize; sym_kOperator]; ACTIONS 7503 [sym_kPublic];
   ACTIONS 7497 [sym_kStatic; sym_kVirtual; sym_kAbstract; sym_kDynamic; sym_kOverride;
   sym_kOverload; sym_kReintroduce; sym_kStdcall; sym_kCdecl; sym_kCppdecl; sym_kPascal;
   sym_kRegister; sym_kMwpascal]; ACTIONS 7506 [sym_kMessage]; ACTIONS 7509 [sym_kDeprecated];
   ACTIONS 7497 [sym_kExperimental; sym_kPlatform; sym_kUnimplemented; sym_kCvar];
   ACTIONS 7512 [sym_kExport]; ACTIONS 7497 [sym_kFar; sym_kNear; sym_kSafecall; sym_kAssembler;
   sym_kNostackframe; sym_kInterrupt; sym_kNoreturn; sym_kIocheck; sym_kLocal; sym_kHardfloat;
   sym_kSoftfloat; sym_kMs_abi_default; sym_kMs_abi_cdecl; sym_kSaveregisters;
   sym_kSysv_abi_default; sym_kSysv_abi_cdecl; sym_kVectorcall; sym_kVarargs; sym_kWinapi];
   ACTIONS 7515 [sym_kAlias]; ACTIONS 7490 [sym_kAsm; sym_kBegin; sym_kCase; sym_kClass;
   sym_kConst; sym_kConstructor; sym_kDestructor; sym_kExports; sym_kFor; sym_kFunction;
   sym_kGoto; sym_kIf; sym_kInherited]; ACTIONS 1016 [sym_kInline]; ACTIONS 7490 [sym_kLabel;
   sym_kNil; sym_kNot; sym_kProcedure; sym_kProperty; sym_kRaise; sym_kRepeat;
   sym_kResourcestring; sym_kString; sym_kThreadvar; sym_kTry; sym_kType; sym_kUses; sym_kVar;
   sym_kWhile; sym_kWith]].

(** State 873. *)
Definition ts_parse_table_873 : parse_row :=
  [STATE 1266 [sym__procAttribute]; STATE 15237 [sym_procAttribute];
   STATE 912 [aux_sym_declProcFwd_repeat1]; ACTIONS 7518 [anon_sym_SEMI; anon_sym_COMMA];
   ACTIONS 7520 [anon_sym_LBRACK]; ACTIONS 7523 [anon_sym_LPAREN];
   ACTIONS 7518 [aux_sym__literalString_token1; anon_sym_POUND];
   ACTIONS 7523 [aux_sym__literalInt_token1]; ACTIONS 7518 [aux_sym__literalInt_token2;
   aux_sym__literalInt_token3]; ACTIONS 7523 [aux_sym__literalFloat_token1];
   ACTIONS 7518 [aux_sym_ppUsesBlock_token1; aux_sym_ppUsesBlock_token2;
   aux_sym_ppUsesBlock_token3]; ACTIONS 7523 [sym_kAdd; sym_kSub]; ACTIONS 7518 [sym_kAt;
   sym_kTrue; sym_kFalse]; ACTIONS 3 [sym__space]; ACTIONS 5 [sym_ppDirective];
   ACTIONS 3 [sym_comment]; ACTIONS 7518 [sym_ppFragmentExpr; sym__literalStringMultiline;
   sym_identifier]; ACTIONS 7525 [sym_kDefault; sym_kNodefault]; ACTIONS 7528 [sym_kDispId];
   ACTIONS 7518 [sym_kGeneric; sym_kSpecialize; sym_kOperator]; ACTIONS 7531 [sym_kPublic];
   ACTIONS 7525 [sym_kStatic; sym_kVirtual; sym_kAbstract; sym_kDynamic; sym_kOverride;
   sym_kOverload; sym_kReintroduce; sym_kStdcall; sym_kCdecl; sym_kCppdecl; sym_kPascal;
   sym_kRegister; sym_kMwpascal]; ACTIONS 7534 [sym_kMessage]; ACTIONS 7537 [sym_kDeprecated];
   ACTIONS 7525 [sym_kExperimental; sym_kPlatform; sym_kUnimplemented; sym_kCvar];
   ACTIONS 7540 [sym_kExport]; ACTIONS 7525 [sym_kFar; sym_kNear; sym_kSafecall; sym_kAssembler;
   sym_kNostackframe; sym_kInterrupt; sym_kNoreturn; sym_kIocheck; sym_kLocal; sym_kHardfloat;
   sym_kSoftfloat; sym_kMs_abi_default; sym_kMs_abi_cdecl; sym_kSaveregisters;
   sym_kSysv_abi_default; sym_kSysv_abi_cdecl; sym_kVectorcall; sym_kVarargs; sym_kWinapi];
   ACTIONS 7543 [sym_kAlias]; ACTIONS 7518 [sym_kAsm; sym_kBegin; sym_kCase; sym_kClass;
   sym_kConst; sym_kConstructor; sym_kDestructor; sym_kExports; sym_kFor; sym_kFunction;
   sym_kGoto; sym_kIf; sym_kInherited]; ACTIONS 1016 [sym_kInline]; ACTIONS 7518 [sym_kLabel;
   sym_kNil; sym_kNot; sym_kProcedure; sym_kProperty; sym_kRaise; sym_kRepeat;
   sym_kResourcestring; sym_kString; sym_kThreadvar; sym_kTry; sym_kType; sym_kUses; sym_kVar;
   sym_kWhile; sym_kWith]].

(** State 874. *)
Definition ts_parse_table_874 : parse_row :=
  [STATE 1266 [sym__procAttribute]; STATE 15237 [sym_procAttribute];
   STATE 900 [aux_sym_declProcFwd_repeat1]; ACTIONS 7546 [anon_sym_SEMI; anon_sym_COMMA];
   ACTIONS 7548 [anon_sym_LBRACK]; ACTIONS 7551 [anon_sym_LPAREN];
   ACTIONS 7546 [aux_sym__literalString_token1; anon_sym_POUND];
   ACTIONS 7551 [aux_sym__literalInt_token1]; ACTIONS 7546 [aux_sym__literalInt_token2;
   aux_sym__literalInt_token3]; ACTIONS 7551 [aux_sym__literalFloat_token1];
   ACTIONS 7546 [aux_sym_ppUsesBlock_token1; aux_sym_ppUsesBlock_token2;
   aux_sym_ppUsesBlock_token3]; ACTIONS 7551 [sym_kAdd; sym_kSub]; ACTIONS 7546 [sym_kAt;
   sym_kTrue; sym_kFalse]; ACTIONS 3 [sym__space]; ACTIONS 5 [sym_ppDirective];
   ACTIONS 3 [sym_comment]; ACTIONS 7546 [sym_ppFragmentExpr; sym__literalStringMultiline;
   sym_identifier]; ACTIONS 7553 [sym_kDefault; sym_kNodefault]; ACTIONS 7556 [sym_kDispId];
   ACTIONS 7546 [sym_kGeneric; sym_kSpecialize; sym_kOperator]; ACTIONS 7559 [sym_kPublic];
   ACTIONS 7553 [sym_kStatic; sym_kVirtual; sym_kAbstract; sym_kDynamic; sym_kOverride;
   sym_kOverload; sym_kReintroduce; sym_kStdcall; sym_kCdecl; sym_kCppdecl; sym_kPascal;
   sym_kRegister; sym_kMwpascal]; ACTIONS 7562 [sym_kMessage]; ACTIONS 7565 [sym_kDeprecated];
   ACTIONS 7553 [sym_kExperimental; sym_kPlatform; sym_kUnimplemented; sym_kCvar];
   ACTIONS 7568 [sym_kExport]; ACTIONS 7553 [sym_kFar; sym_kNear; sym_kSafecall; sym_kAssembler;
   sym_kNostackframe; sym_kInterrupt; sym_kNoreturn; sym_kIocheck; sym_kLocal; sym_kHardfloat;
   sym_kSoftfloat; sym_kMs_abi_default; sym_kMs_abi_cdecl; sym_kSaveregisters;
   sym_kSysv_abi_default; sym_kSysv_abi_cdecl; sym_kVectorcall; sym_kVarargs; sym_kWinapi];
   ACTIONS 7571 [sym_kAlias]; ACTIONS 7546 [sym_kAsm; sym_kBegin; sym_kCase; sym_kClass;
   sym_kConst; sym_kConstructor; sym_kDestructor; sym_kExports; sym_kFor; sym_kFunction;
   sym_kGoto; sym_kIf; sym_kInherited]; ACTIONS 1016 [sym_kInline]; ACTIONS 7546 [sym_kLabel;
   sym_kNil; sym_kNot; sym_kProcedure; sym_kProperty; sym_kRaise; sym_kRepeat;
   sym_kResourcestring; sym_kString; sym_kThreadvar; sym_kTry; sym_kType; sym_kUses; sym_kVar;
   sym_kWhile; sym_kWith]].

(** State 875. *)
Definition ts_parse_table_875 : parse_row :=
  [STATE 1266 [sym__procAttribute]; STATE 15237 [sym_procAttribute];
   STATE 902 [aux_sym_declProcFwd_repeat1]; ACTIONS 7574 [anon_sym_SEMI; anon_sym_COMMA];
   ACTIONS 7576 [anon_sym_LBRACK]; ACTIONS 7579 [anon_sym_LPAREN];
   ACTIONS 7574 [aux_sym__literalString_token1; anon_sym_POUND];
   ACTIONS 7579 [aux_sym__literalInt_token1]; ACTIONS 7574 [aux_sym__literalInt_token2;
   aux_sym__literalInt_token3]; ACTIONS 7579 [aux_sym__literalFloat_token1];
   ACTIONS 7574 [aux_sym_ppUsesBlock_token1; aux_sym_ppUsesBlock_token2;
   aux_sym_ppUsesBlock_token3]; ACTIONS 7579 [sym_kAdd; sym_kSub]; ACTIONS 7574 [sym_kAt;
   sym_kTrue; sym_kFalse]; ACTIONS 3 [sym__space]; ACTIONS 5 [sym_ppDirective];
   ACTIONS 3 [sym_comment]; ACTIONS 7574 [sym_ppFragmentExpr; sym__literalStringMultiline;
   sym_identifier]; ACTIONS 7581 [sym_kDefault; sym_kNodefault]; ACTIONS 7584 [sym_kDispId];
   ACTIONS 7574 [sym_kGeneric; sym_kSpecialize; sym_kOperator]; ACTIONS 7587 [sym_kPublic];
   ACTIONS 7581 [sym_kStatic; sym_kVirtual; sym_kAbstract; sym_kDynamic; sym_kOverride;
   sym_kOverload; sym_kReintroduce; sym_kStdcall; sym_kCdecl; sym_kCppdecl; sym_kPascal;
   sym_kRegister; sym_kMwpascal]; ACTIONS 7590 [sym_kMessage]; ACTIONS 7593 [sym_kDeprecated];
   ACTIONS 7581 [sym_kExperimental; sym_kPlatform; sym_kUnimplemented; sym_kCvar];
   ACTIONS 7596 [sym_kExport]; ACTIONS 7581 [sym_kFar; sym_kNear; sym_kSafecall; sym_kAssembler;
   sym_kNostackframe; sym_kInterrupt; sym_kNoreturn; sym_kIocheck; sym_kLocal; sym_kHardfloat;
   sym_kSoftfloat; sym_kMs_abi_default; sym_kMs_abi_cdecl; sym_kSaveregisters;
   sym_kSysv_abi_default; sym_kSysv_abi_cdecl; sym_kVectorcall; sym_kVarargs; sym_kWinapi];
   ACTIONS 7599 [sym_kAlias]; ACTIONS 7574 [sym_kAsm; sym_kBegin; sym_kCase; sym_kClass;
   sym_kConst; sym_kConstructor; sym_kDestructor; sym_kExports; sym_kFor; sym_kFunction;
   sym_kGoto; sym_kIf; sym_kInherited]; ACTIONS 1016 [sym_kInline]; ACTIONS 7574 [sym_kLabel;
   sym_kNil; sym_kNot; sym_kProcedure; sym_kProperty; sym_kRaise; sym_kRepeat;
   sym_kResourcestring; sym_kString; sym_kThreadvar; sym_kTry; sym_kType; sym_kUses; sym_kVar;
   sym_kWhile; sym_kWith]].

(** State 876. *)
Definition ts_parse_table_876 : parse_row :=
  [STATE 1266 [sym__procAttribute]; STATE 15237 [sym_procAttribute];
   STATE 912 [aux_sym_declProcFwd_repeat1]; ACTIONS 7602 [anon_sym_SEMI; anon_sym_COMMA];
   ACTIONS 7604 [anon_sym_LBRACK]; ACTIONS 7607 [anon_sym_LPAREN];
   ACTIONS 7602 [aux_sym__literalString_token1; anon_sym_POUND];
   ACTIONS 7607 [aux_sym__literalInt_token1]; ACTIONS 7602 [aux_sym__literalInt_token2;
   aux_sym__literalInt_token3]; ACTIONS 7607 [aux_sym__literalFloat_token1];
   ACTIONS 7602 [aux_sym_ppUsesBlock_token1; aux_sym_ppUsesBlock_token2;
   aux_sym_ppUsesBlock_token3]; ACTIONS 7607 [sym_kAdd; sym_kSub]; ACTIONS 7602 [sym_kAt;
   sym_kTrue; sym_kFalse]; ACTIONS 3 [sym__space]; ACTIONS 5 [sym_ppDirective];
   ACTIONS 3 [sym_comment]; ACTIONS 7602 [sym_ppFragmentExpr; sym__literalStringMultiline;
   sym_identifier]; ACTIONS 7609 [sym_kDefault; sym_kNodefault]; ACTIONS 7612 [sym_kDispId];
   ACTIONS 7602 [sym_kGeneric; sym_kSpecialize; sym_kOperator]; ACTIONS 7615 [sym_kPublic];
   ACTIONS 7609 [sym_kStatic; sym_kVirtual; sym_kAbstract; sym_kDynamic; sym_kOverride;
   sym_kOverload; sym_kReintroduce; sym_kStdcall; sym_kCdecl; sym_kCppdecl; sym_kPascal;
   sym_kRegister; sym_kMwpascal]; ACTIONS 7618 [sym_kMessage]; ACTIONS 7621 [sym_kDeprecated];
   ACTIONS 7609 [sym_kExperimental; sym_kPlatform; sym_kUnimplemented; sym_kCvar];
   ACTIONS 7624 [sym_kExport]; ACTIONS 7609 [sym_kFar; sym_kNear; sym_kSafecall; sym_kAssembler;
   sym_kNostackframe; sym_kInterrupt; sym_kNoreturn; sym_kIocheck; sym_kLocal; sym_kHardfloat;
   sym_kSoftfloat; sym_kMs_abi_default; sym_kMs_abi_cdecl; sym_kSaveregisters;
   sym_kSysv_abi_default; sym_kSysv_abi_cdecl; sym_kVectorcall; sym_kVarargs; sym_kWinapi];
   ACTIONS 7627 [sym_kAlias]; ACTIONS 7602 [sym_kAsm; sym_kBegin; sym_kCase; sym_kClass;
   sym_kConst; sym_kConstructor; sym_kDestructor; sym_kExports; sym_kFor; sym_kFunction;
   sym_kGoto; sym_kIf; sym_kInherited]; ACTIONS 1016 [sym_kInline]; ACTIONS 7602 [sym_kLabel;
   sym_kNil; sym_kNot; sym_kProcedure; sym_kProperty; sym_kRaise; sym_kRepeat;
   sym_kResourcestring; sym_kString; sym_kThreadvar; sym_kTry; sym_kType; sym_kUses; sym_kVar;
   sym_kWhile; sym_kWith]].

(** State 877. *)
Definition ts_parse_table_877 : parse_row :=
  [STATE 1266 [sym__procAttribute]; STATE 15237 [sym_procAttribute];
   STATE 912 [aux_sym_declProcFwd_repeat1]; ACTIONS 7630 [anon_sym_SEMI; anon_sym_COMMA];
   ACTIONS 7632 [anon_sym_LBRACK]; ACTIONS 7635 [anon_sym_LPAREN];
   ACTIONS 7630 [aux_sym__literalString_token1; anon_sym_POUND];
   ACTIONS 7635 [aux_sym__literalInt_token1]; ACTIONS 7630 [aux_sym__literalInt_token2;
   aux_sym__literalInt_token3]; ACTIONS 7635 [aux_sym__literalFloat_token1];
   ACTIONS 7630 [aux_sym_ppUsesBlock_token1; aux_sym_ppUsesBlock_token2;
   aux_sym_ppUsesBlock_token3]; ACTIONS 7635 [sym_kAdd; sym_kSub]; ACTIONS 7630 [sym_kAt;
   sym_kTrue; sym_kFalse]; ACTIONS 3 [sym__space]; ACTIONS 5 [sym_ppDirective];
   ACTIONS 3 [sym_comment]; ACTIONS 7630 [sym_ppFragmentExpr; sym__literalStringMultiline;
   sym_identifier]; ACTIONS 7637 [sym_kDefault; sym_kNodefault]; ACTIONS 7640 [sym_kDispId];
   ACTIONS 7630 [sym_kGeneric; sym_kSpecialize; sym_kOperator]; ACTIONS 7643 [sym_kPublic];
   ACTIONS 7637 [sym_kStatic; sym_kVirtual; sym_kAbstract; sym_kDynamic; sym_kOverride;
   sym_kOverload; sym_kReintroduce; sym_kStdcall; sym_kCdecl; sym_kCppdecl; sym_kPascal;
   sym_kRegister; sym_kMwpascal]; ACTIONS 7646 [sym_kMessage]; ACTIONS 7649 [sym_kDeprecated];
   ACTIONS 7637 [sym_kExperimental; sym_kPlatform; sym_kUnimplemented; sym_kCvar];
   ACTIONS 7652 [sym_kExport]; ACTIONS 7637 [sym_kFar; sym_kNear; sym_kSafecall; sym_kAssembler;
   sym_kNostackframe; sym_kInterrupt; sym_kNoreturn; sym_kIocheck; sym_kLocal; sym_kHardfloat;
   sym_kSoftfloat; sym_kMs_abi_default; sym_kMs_abi_cdecl; sym_kSaveregisters;
   sym_kSysv_abi_default; sym_kSysv_abi_cdecl; sym_kVectorcall; sym_kVarargs; sym_kWinapi];
   ACTIONS 7655 [sym_kAlias]; ACTIONS 7630 [sym_kAsm; sym_kBegin; sym_kCase; sym_kClass;
   sym_kConst; sym_kConstructor; sym_kDestructor; sym_kExports; sym_kFor; sym_kFunction;
   sym_kGoto; sym_kIf; sym_kInherited]; ACTIONS 1016 [sym_kInline]; ACTIONS 7630 [sym_kLabel;
   sym_kNil; sym_kNot; sym_kProcedure; sym_kProperty; sym_kRaise; sym_kRepeat;
   sym_kResourcestring; sym_kString; sym_kThreadvar; sym_kTry; sym_kType; sym_kUses; sym_kVar;
   sym_kWhile; sym_kWith]].

(** State 878. *)
Definition ts_parse_table_878 : parse_row :=
  [STATE 1266 [sym__procAttribute]; STATE 15237 [sym_procAttribute];
   STATE 884 [aux_sym_declProcFwd_repeat1]; ACTIONS 7658 [anon_sym_SEMI; anon_sym_COMMA];
   ACTIONS 7660 [anon_sym_LBRACK]; ACTIONS 7663 [anon_sym_LPAREN];
   ACTIONS 7658 [aux_sym__literalString_token1; anon_sym_POUND];
   ACTIONS 7663 [aux_sym__literalInt_token1]; ACTIONS 7658 [aux_sym__literalInt_token2;
   aux_sym__literalInt_token3]; ACTIONS 7663 [aux_sym__literalFloat_token1];
   ACTIONS 7658 [aux_sym_ppUsesBlock_token1; aux_sym_ppUsesBlock_token2;
   aux_sym_ppUsesBlock_token3]; ACTIONS 7663 [sym_kAdd; sym_kSub]; ACTIONS 7658 [sym_kAt;
   sym_kTrue; sym_kFalse]; ACTIONS 3 [sym__space]; ACTIONS 5 [sym_ppDirective];
   ACTIONS 3 [sym_comment]; ACTIONS 7658 [sym_ppFragmentExpr; sym__literalStringMultiline;
   sym_identifier]; ACTIONS 7665 [sym_kDefault; sym_kNodefault]; ACTIONS 7668 [sym_kDispId];
   ACTIONS 7658 [sym_kGeneric; sym_kSpecialize; sym_kOperator]; ACTIONS 7671 [sym_kPublic];
   ACTIONS 7665 [sym_kStatic; sym_kVirtual; sym_kAbstract; sym_kDynamic; sym_kOverride;
   sym_kOverload; sym_kReintroduce; sym_kStdcall; sym_kCdecl; sym_kCppdecl; sym_kPascal;
   sym_kRegister; sym_kMwpascal]; ACTIONS 7674 [sym_kMessage]; ACTIONS 7677 [sym_kDeprecated];
   ACTIONS 7665 [sym_kExperimental; sym_kPlatform; sym_kUnimplemented; sym_kCvar];
   ACTIONS 7680 [sym_kExport]; ACTIONS 7665 [sym_kFar; sym_kNear; sym_kSafecall; sym_kAssembler;
   sym_kNostackframe; sym_kInterrupt; sym_kNoreturn; sym_kIocheck; sym_kLocal; sym_kHardfloat;
   sym_kSoftfloat; sym_kMs_abi_default; sym_kMs_abi_cdecl; sym_kSaveregisters;
   sym_kSysv_abi_default; sym_kSysv_abi_cdecl; sym_kVectorcall; sym_kVarargs; sym_kWinapi];
   ACTIONS 7683 [sym_kAlias]; ACTIONS 7658 [sym_kAsm; sym_kBegin; sym_kCase; sym_kClass;
   sym_kConst; sym_kConstructor; sym_kDestructor; sym_kExports; sym_kFor; sym_kFunction;
   sym_kGoto; sym_kIf; sym_kInherited]; ACTIONS 1016 [sym_kInline]; ACTIONS 7658 [sym_kLabel;
   sym_kNil; sym_kNot; sym_kProcedure; sym_kProperty; sym_kRaise; sym_kRepeat;
   sym_kResourcestring; sym_kString; sym_kThreadvar; sym_kTry; sym_kType; sym_kUses; sym_kVar;
   sym_kWhile; sym_kWith]].

(** State 879. *)
Definition ts_parse_table_879 : parse_row :=
  [STATE 1266 [sym__procAttribute]; STATE 15237 [sym_procAttribute];
   STATE 912 [aux_sym_declProcFwd_repeat1]; ACTIONS 7686 [anon_sym_SEMI; anon_sym_COMMA];
   ACTIONS 7688 [anon_sym_LBRACK]; ACTIONS 7691 [anon_sym_LPAREN];
   ACTIONS 7686 [aux_sym__literalString_token1; anon_sym_POUND];
   ACTIONS 7691 [aux_sym__literalInt_token1]; ACTIONS 7686 [aux_sym__literalInt_token2;
   aux_sym__literalInt_token3]; ACTIONS 7691 [aux_sym__literalFloat_token1];
   ACTIONS 7686 [aux_sym_ppUsesBlock_token1; aux_sym_ppUsesBlock_token2;
   aux_sym_ppUsesBlock_token3]; ACTIONS 7691 [sym_kAdd; sym_kSub]; ACTIONS 7686 [sym_kAt;
   sym_kTrue; sym_kFalse]; ACTIONS 3 [sym__space]; ACTIONS 5 [sym_ppDirective];
   ACTIONS 3 [sym_comment]; ACTIONS 7686 [sym_ppFragmentExpr; sym__literalStringMultiline;
   sym_identifier]; ACTIONS 7693 [sym_kDefault; sym_kNodefault]; ACTIONS 7696 [sym_kDispId];
   ACTIONS 7686 [sym_kGeneric; sym_kSpecialize; sym_kOperator]; ACTIONS 7699 [sym_kPublic];
   ACTIONS 7693 [sym_kStatic; sym_kVirtual; sym_kAbstract; sym_kDynamic; sym_kOverride;
   sym_kOverload; sym_kReintroduce; sym_kStdcall; sym_kCdecl; sym_kCppdecl; sym_kPascal;
   sym_kRegister; sym_kMwpascal]; ACTIONS 7702 [sym_kMessage]; ACTIONS 7705 [sym_kDeprecated];
   ACTIONS 7693 [sym_kExperimental; sym_kPlatform; sym_kUnimplemented; sym_kCvar];
   ACTIONS 7708 [sym_kExport]; ACTIONS 7693 [sym_kFar; sym_kNear; sym_kSafecall; sym_kAssembler;
   sym_kNostackframe; sym_kInterrupt; sym_kNoreturn; sym_kIocheck; sym_kLocal; sym_kHardfloat;
   sym_kSoftfloat; sym_kMs_abi_default; sym_kMs_abi_cdecl; sym_kSaveregisters;
   sym_kSysv_abi_default; sym_kSysv_abi_cdecl; sym_kVectorcall; sym_kVarargs; sym_kWinapi];
   ACTIONS 7711 [sym_kAlias]; ACTIONS 7686 [sym_kAsm; sym_kBegin; sym_kCase; sym_kClass;
   sym_kConst; sym_kConstructor; sym_kDestructor; sym_kExports; sym_kFor; sym_kFunction;
   sym_kGoto; sym_kIf; sym_kInherited]; ACTIONS 1016 [sym_kInline]; ACTIONS 7686 [sym_kLabel;
   sym_kNil; sym_kNot; sym_kProcedure; sym_kProperty; sym_kRaise; sym_kRepeat;
   sym_kResourcestring; sym_kString; sym_kThreadvar; sym_kTry; sym_kType; sym_kUses; sym_kVar;
   sym_kWhile; sym_kWith]].

(** State 880. *)
Definition ts_parse_table_880 : parse_row :=
  [STATE 1266 [sym__procAttribute]; STATE 15237 [sym_procAttribute];
   STATE 912 [aux_sym_declProcFwd_repeat1]; ACTIONS 7714 [anon_sym_SEMI; anon_sym_COMMA];
   ACTIONS 7716 [anon_sym_LBRACK]; ACTIONS 7719 [anon_sym_LPAREN];
   ACTIONS 7714 [aux_sym__literalString_token1; anon_sym_POUND];
   ACTIONS 7719 [aux_sym__literalInt_token1]; ACTIONS 7714 [aux_sym__literalInt_token2;
   aux_sym__literalInt_token3]; ACTIONS 7719 [aux_sym__literalFloat_token1];
   ACTIONS 7714 [aux_sym_ppUsesBlock_token1; aux_sym_ppUsesBlock_token2;
   aux_sym_ppUsesBlock_token3]; ACTIONS 7719 [sym_kAdd; sym_kSub]; ACTIONS 7714 [sym_kAt;
   sym_kTrue; sym_kFalse]; ACTIONS 3 [sym__space]; ACTIONS 5 [sym_ppDirective];
   ACTIONS 3 [sym_comment]; ACTIONS 7714 [sym_ppFragmentExpr; sym__literalStringMultiline;
   sym_identifier]; ACTIONS 7721 [sym_kDefault; sym_kNodefault]; ACTIONS 7724 [sym_kDispId];
   ACTIONS 7714 [sym_kGeneric; sym_kSpecialize; sym_kOperator]; ACTIONS 7727 [sym_kPublic];
   ACTIONS 7721 [sym_kStatic; sym_kVirtual; sym_kAbstract; sym_kDynamic; sym_kOverride;
   sym_kOverload; sym_kReintroduce; sym_kStdcall; sym_kCdecl; sym_kCppdecl; sym_kPascal;
   sym_kRegister; sym_kMwpascal]; ACTIONS 7730 [sym_kMessage]; ACTIONS 7733 [sym_kDeprecated];
   ACTIONS 7721 [sym_kExperimental; sym_kPlatform; sym_kUnimplemented; sym_kCvar];
   ACTIONS 7736 [sym_kExport]; ACTIONS 7721 [sym_kFar; sym_kNear; sym_kSafecall; sym_kAssembler;
   sym_kNostackframe; sym_kInterrupt; sym_kNoreturn; sym_kIocheck; sym_kLocal; sym_kHardfloat;
   sym_kSoftfloat; sym_kMs_abi_default; sym_kMs_abi_cdecl; sym_kSaveregisters;
   sym_kSysv_abi_default; sym_kSysv_abi_cdecl; sym_kVectorcall; sym_kVarargs; sym_kWinapi];
   ACTIONS 7739 [sym_kAlias]; ACTIONS 7714 [sym_kAsm; sym_kBegin; sym_kCase; sym_kClass;
   sym_kConst; sym_kConstructor; sym_kDestructor; sym_kExports; sym_kFor; sym_kFunction;
   sym_kGoto; sym_kIf; sym_kInherited]; ACTIONS 1016 [sym_kInline]; ACTIONS 7714 [sym_kLabel;
   sym_kNil; sym_kNot; sym_kProcedure; sym_kProperty; sym_kRaise; sym_kRepeat;
   sym_kResourcestring; sym_kString; sym_kThreadvar; sym_kTry; sym_kType; sym_kUses; sym_kVar;
   sym_kWhile; sym_kWith]].

(** State 881. *)
Definition ts_parse_table_881 : parse_row :=
  [STATE 1266 [sym__procAttribute]; STATE 15237 [sym_procAttribute];
   STATE 885 [aux_sym_declProcFwd_repeat1]; ACTIONS 7742 [anon_sym_SEMI; anon_sym_COMMA];
   ACTIONS 7744 [anon_sym_LBRACK]; ACTIONS 7747 [anon_sym_LPAREN];
   ACTIONS 7742 [aux_sym__literalString_token1; anon_sym_POUND];
   ACTIONS 7747 [aux_sym__literalInt_token1]; ACTIONS 7742 [aux_sym__literalInt_token2;
   aux_sym__literalInt_token3]; ACTIONS 7747 [aux_sym__literalFloat_token1];
   ACTIONS 7742 [aux_sym_ppUsesBlock_token1; aux_sym_ppUsesBlock_token2;
   aux_sym_ppUsesBlock_token3]; ACTIONS 7747 [sym_kAdd; sym_kSub]; ACTIONS 7742 [sym_kAt;
   sym_kTrue; sym_kFalse]; ACTIONS 3 [sym__space]; ACTIONS 5 [sym_ppDirective];
   ACTIONS 3 [sym_comment]; ACTIONS 7742 [sym_ppFragmentExpr; sym__literalStringMultiline;
   sym_identifier]; ACTIONS 7749 [sym_kDefault; sym_kNodefault]; ACTIONS 7752 [sym_kDispId];
   ACTIONS 7742 [sym_kGeneric; sym_kSpecialize; sym_kOperator]; ACTIONS 7755 [sym_kPublic];
   ACTIONS 7749 [sym_kStatic; sym_kVirtual; sym_kAbstract; sym_kDynamic; sym_kOverride;
   sym_kOverload; sym_kReintroduce; sym_kStdcall; sym_kCdecl; sym_kCppdecl; sym_kPascal;
   sym_kRegister; sym_kMwpascal]; ACTIONS 7758 [sym_kMessage]; ACTIONS 7761 [sym_kDeprecated];
   ACTIONS 7749 [sym_kExperimental; sym_kPlatform; sym_kUnimplemented; sym_kCvar];
   ACTIONS 7764 [sym_kExport]; ACTIONS 7749 [sym_kFar; sym_kNear; sym_kSafecall; sym_kAssembler;
   sym_kNostackframe; sym_kInterrupt; sym_kNoreturn; sym_kIocheck; sym_kLocal; sym_kHardfloat;
   sym_kSoftfloat; sym_kMs_abi_default; sym_kMs_abi_cdecl; sym_kSaveregisters;
   sym_kSysv_abi_default; sym_kSysv_abi_cdecl; sym_kVectorcall; sym_kVarargs; sym_kWinapi];
   ACTIONS 7767 [sym_kAlias]; ACTIONS 7742 [sym_kAsm; sym_kBegin; sym_kCase; sym_kClass;
   sym_kConst; sym_kConstructor; sym_kDestructor; sym_kExports; sym_kFor; sym_kFunction;
   sym_kGoto; sym_kIf; sym_kInherited]; ACTIONS 1016 [sym_kInline]; ACTIONS 7742 [sym_kLabel;
   sym_kNil; sym_kNot; sym_kProcedure; sym_kProperty; sym_kRaise; sym_kRepeat;
   sym_kResourcestring; sym_kString; sym_kThreadvar; sym_kTry; sym_kType; sym_kUses; sym_kVar;
   sym_kWhile; sym_kWith]].

(** State 882. *)
Definition ts_parse_table_882 : parse_row :=
  [STATE 1266 [sym__procAttribute]; STATE 15237 [sym_procAttribute];
   STATE 886 [aux_sym_declProcFwd_repeat1]; ACTIONS 7770 [anon_sym_SEMI; anon_sym_COMMA];
   ACTIONS 7772 [anon_sym_LBRACK]; ACTIONS 7775 [anon_sym_LPAREN];
   ACTIONS 7770 [aux_sym__literalString_token1; anon_sym_POUND];
   ACTIONS 7775 [aux_sym__literalInt_token1]; ACTIONS 7770 [aux_sym__literalInt_token2;
   aux_sym__literalInt_token3]; ACTIONS 7775 [aux_sym__literalFloat_token1];
   ACTIONS 7770 [aux_sym_ppUsesBlock_token1; aux_sym_ppUsesBlock_token2;
   aux_sym_ppUsesBlock_token3]; ACTIONS 7775 [sym_kAdd; sym_kSub]; ACTIONS 7770 [sym_kAt;
   sym_kTrue; sym_kFalse]; ACTIONS 3 [sym__space]; ACTIONS 5 [sym_ppDirective];
   ACTIONS 3 [sym_comment]; ACTIONS 7770 [sym_ppFragmentExpr; sym__literalStringMultiline;
   sym_identifier]; ACTIONS 7777 [sym_kDefault; sym_kNodefault]; ACTIONS 7780 [sym_kDispId];
   ACTIONS 7770 [sym_kGeneric; sym_kSpecialize; sym_kOperator]; ACTIONS 7783 [sym_kPublic];
   ACTIONS 7777 [sym_kStatic; sym_kVirtual; sym_kAbstract; sym_kDynamic; sym_kOverride;
   sym_kOverload; sym_kReintroduce; sym_kStdcall; sym_kCdecl; sym_kCppdecl; sym_kPascal;
   sym_kRegister; sym_kMwpascal]; ACTIONS 7786 [sym_kMessage]; ACTIONS 7789 [sym_kDeprecated];
   ACTIONS 7777 [sym_kExperimental; sym_kPlatform; sym_kUnimplemented; sym_kCvar];
   ACTIONS 7792 [sym_kExport]; ACTIONS 7777 [sym_kFar; sym_kNear; sym_kSafecall; sym_kAssembler;
   sym_kNostackframe; sym_kInterrupt; sym_kNoreturn; sym_kIocheck; sym_kLocal; sym_kHardfloat;
   sym_kSoftfloat; sym_kMs_abi_default; sym_kMs_abi_cdecl; sym_kSaveregisters;
   sym_kSysv_abi_default; sym_kSysv_abi_cdecl; sym_kVectorcall; sym_kVarargs; sym_kWinapi];
   ACTIONS 7795 [sym_kAlias]; ACTIONS 7770 [sym_kAsm; sym_kBegin; sym_kCase; sym_kClass;
   sym_kConst; sym_kConstructor; sym_kDestructor; sym_kExports; sym_kFor; sym_kFunction;
   sym_kGoto; sym_kIf; sym_kInherited]; ACTIONS 1016 [sym_kInline]; ACTIONS 7770 [sym_kLabel;
   sym_kNil; sym_kNot; sym_kProcedure; sym_kProperty; sym_kRaise; sym_kRepeat;
   sym_kResourcestring; sym_kString; sym_kThreadvar; sym_kTry; sym_kType; sym_kUses; sym_kVar;
   sym_kWhile; sym_kWith]].

(** State 883. *)
Definition ts_parse_table_883 : parse_row :=
  [STATE 1266 [sym__procAttribute]; STATE 15237 [sym_procAttribute];
   STATE 912 [aux_sym_declProcFwd_repeat1]; ACTIONS 7798 [anon_sym_SEMI; anon_sym_COMMA];
   ACTIONS 7800 [anon_sym_LBRACK]; ACTIONS 7803 [anon_sym_LPAREN];
   ACTIONS 7798 [aux_sym__literalString_token1; anon_sym_POUND];
   ACTIONS 7803 [aux_sym__literalInt_token1]; ACTIONS 7798 [aux_sym__literalInt_token2;
   aux_sym__literalInt_token3]; ACTIONS 7803 [aux_sym__literalFloat_token1];
   ACTIONS 7798 [aux_sym_ppUsesBlock_token1; aux_sym_ppUsesBlock_token2;
   aux_sym_ppUsesBlock_token3]; ACTIONS 7803 [sym_kAdd; sym_kSub]; ACTIONS 7798 [sym_kAt;
   sym_kTrue; sym_kFalse]; ACTIONS 3 [sym__space]; ACTIONS 5 [sym_ppDirective];
   ACTIONS 3 [sym_comment]; ACTIONS 7798 [sym_ppFragmentExpr; sym__literalStringMultiline;
   sym_identifier]; ACTIONS 7805 [sym_kDefault; sym_kNodefault]; ACTIONS 7808 [sym_kDispId];
   ACTIONS 7798 [sym_kGeneric; sym_kSpecialize; sym_kOperator]; ACTIONS 7811 [sym_kPublic];
   ACTIONS 7805 [sym_kStatic; sym_kVirtual; sym_kAbstract; sym_kDynamic; sym_kOverride;
   sym_kOverload; sym_kReintroduce; sym_kStdcall; sym_kCdecl; sym_kCppdecl; sym_kPascal;
   sym_kRegister; sym_kMwpascal]; ACTIONS 7814 [sym_kMessage]; ACTIONS 7817 [sym_kDeprecated];
   ACTIONS 7805 [sym_kExperimental; sym_kPlatform; sym_kUnimplemented; sym_kCvar];
   ACTIONS 7820 [sym_kExport]; ACTIONS 7805 [sym_kFar; sym_kNear; sym_kSafecall; sym_kAssembler;
   sym_kNostackframe; sym_kInterrupt; sym_kNoreturn; sym_kIocheck; sym_kLocal; sym_kHardfloat;
   sym_kSoftfloat; sym_kMs_abi_default; sym_kMs_abi_cdecl; sym_kSaveregisters;
   sym_kSysv_abi_default; sym_kSysv_abi_cdecl; sym_kVectorcall; sym_kVarargs; sym_kWinapi];
   ACTIONS 7823 [sym_kAlias]; ACTIONS 7798 [sym_kAsm; sym_kBegin; sym_kCase; sym_kClass;
   sym_kConst; sym_kConstructor; sym_kDestructor; sym_kExports; sym_kFor; sym_kFunction;
   sym_kGoto; sym_kIf; sym_kInherited]; ACTIONS 1016 [sym_kInline]; ACTIONS 7798 [sym_kLabel;
   sym_kNil; sym_kNot; sym_kProcedure; sym_kProperty; sym_kRaise; sym_kRepeat;
   sym_kResourcestring; sym_kString; sym_kThreadvar; sym_kTry; sym_kType; sym_kUses; sym_kVar;
   sym_kWhile; sym_kWith]].

(** State 884. *)
Definition ts_parse_table_884 : parse_row :=
  [STATE 1266 [sym__procAttribute]; STATE 15237 [sym_procAttribute];
   STATE 912 [aux_sym_declProcFwd_repeat1]; ACTIONS 7826 [anon_sym_SEMI; anon_sym_COMMA];
   ACTIONS 7828 [anon_sym_LBRACK]; ACTIONS 7831 [anon_sym_LPAREN];
   ACTIONS 7826 [aux_sym__literalString_token1; anon_sym_POUND];
   ACTIONS 7831 [aux_sym__literalInt_token1]; ACTIONS 7826 [aux_sym__literalInt_token2;
   aux_sym__literalInt_token3]; ACTIONS 7831 [aux_sym__literalFloat_token1];
   ACTIONS 7826 [aux_sym_ppUsesBlock_token1; aux_sym_ppUsesBlock_token2;
   aux_sym_ppUsesBlock_token3]; ACTIONS 7831 [sym_kAdd; sym_kSub]; ACTIONS 7826 [sym_kAt;
   sym_kTrue; sym_kFalse]; ACTIONS 3 [sym__space]; ACTIONS 5 [sym_ppDirective];
   ACTIONS 3 [sym_comment]; ACTIONS 7826 [sym_ppFragmentExpr; sym__literalStringMultiline;
   sym_identifier]; ACTIONS 7833 [sym_kDefault; sym_kNodefault]; ACTIONS 7836 [sym_kDispId];
   ACTIONS 7826 [sym_kGeneric; sym_kSpecialize; sym_kOperator]; ACTIONS 7839 [sym_kPublic];
   ACTIONS 7833 [sym_kStatic; sym_kVirtual; sym_kAbstract; sym_kDynamic; sym_kOverride;
   sym_kOverload; sym_kReintroduce; sym_kStdcall; sym_kCdecl; sym_kCppdecl; sym_kPascal;
   sym_kRegister; sym_kMwpascal]; ACTIONS 7842 [sym_kMessage]; ACTIONS 7845 [sym_kDeprecated];
   ACTIONS 7833 [sym_kExperimental; sym_kPlatform; sym_kUnimplemented; sym_kCvar];
   ACTIONS 7848 [sym_kExport]; ACTIONS 7833 [sym_kFar; sym_kNear; sym_kSafecall; sym_kAssembler;
   sym_kNostackframe; sym_kInterrupt; sym_kNoreturn; sym_kIocheck; sym_kLocal; sym_kHardfloat;
   sym_kSoftfloat; sym_kMs_abi_default; sym_kMs_abi_cdecl; sym_kSaveregisters;
   sym_kSysv_abi_default; sym_kSysv_abi_cdecl; sym_kVectorcall; sym_kVarargs; sym_kWinapi];
   ACTIONS 7851 [sym_kAlias]; ACTIONS 7826 [sym_kAsm; sym_kBegin; sym_kCase; sym_kClass;
   sym_kConst; sym_kConstructor; sym_kDestructor; sym_kExports; sym_kFor; sym_kFunction;
   sym_kGoto; sym_kIf; sym_kInherited]; ACTIONS 1016 [sym_kInline]; ACTIONS 7826 [sym_kLabel;
   sym_kNil; sym_kNot; sym_kProcedure; sym_kProperty; sym_kRaise; sym_kRepeat;
   sym_kResourcestring; sym_kString; sym_kThreadvar; sym_kTry; sym_kType; sym_kUses; sym_kVar;
   sym_kWhile; sym_kWith]].

(** State 885. *)
Definition ts_parse_table_885 : parse_row :=
  [STATE 1266 [sym__procAttribute]; STATE 15237 [sym_procAttribute];
   STATE 912 [aux_sym_declProcFwd_repeat1]; ACTIONS 7854 [anon_sym_SEMI; anon_sym_COMMA];
   ACTIONS 7856 [anon_sym_LBRACK]; ACTIONS 7859 [anon_sym_LPAREN];
   ACTIONS 7854 [aux_sym__literalString_token1; anon_sym_POUND];
   ACTIONS 7859 [aux_sym__literalInt_token1]; ACTIONS 7854 [aux_sym__literalInt_token2;
   aux_sym__literalInt_token3]; ACTIONS 7859 [aux_sym__literalFloat_token1];
   ACTIONS 7854 [aux_sym_ppUsesBlock_token1; aux_sym_ppUsesBlock_token2;
   aux_sym_ppUsesBlock_token3]; ACTIONS 7859 [sym_kAdd; sym_kSub]; ACTIONS 7854 [sym_kAt;
   sym_kTrue; sym_kFalse]; ACTIONS 3 [sym__space]; ACTIONS 5 [sym_ppDirective];
   ACTIONS 3 [sym_comment]; ACTIONS 7854 [sym_ppFragmentExpr; sym__literalStringMultiline;
   sym_identifier]; ACTIONS 7861 [sym_kDefault; sym_kNodefault]; ACTIONS 7864 [sym_kDispId];
   ACTIONS 7854 [sym_kGeneric; sym_kSpecialize; sym_kOperator]; ACTIONS 7867 [sym_kPublic];
   ACTIONS 7861 [sym_kStatic; sym_kVirtual; sym_kAbstract; sym_kDynamic; sym_kOverride;
   sym_kOverload; sym_kReintroduce; sym_kStdcall; sym_kCdecl; sym_kCppdecl; sym_kPascal;
   sym_kRegister; sym_kMwpascal]; ACTIONS 7870 [sym_kMessage]; ACTIONS 7873 [sym_kDeprecated];
   ACTIONS 7861 [sym_kExperimental; sym_kPlatform; sym_kUnimplemented; sym_kCvar];
   ACTIONS 7876 [sym_kExport]; ACTIONS 7861 [sym_kFar; sym_kNear; sym_kSafecall; sym_kAssembler;
   sym_kNostackframe; sym_kInterrupt; sym_kNoreturn; sym_kIocheck; sym_kLocal; sym_kHardfloat;
   sym_kSoftfloat; sym_kMs_abi_default; sym_kMs_abi_cdecl; sym_kSaveregisters;
   sym_kSysv_abi_default; sym_kSysv_abi_cdecl; sym_kVectorcall; sym_kVarargs; sym_kWinapi];
   ACTIONS 7879 [sym_kAlias]; ACTIONS 7854 [sym_kAsm; sym_kBegin; sym_kCase; sym_kClass;
   sym_kConst; sym_kConstructor; sym_kDestructor; sym_kExports; sym_kFor; sym_kFunction;
   sym_kGoto; sym_kIf; sym_kInherited]; ACTIONS 1016 [sym_kInline]; ACTIONS 7854 [sym_kLabel;
   sym_kNil; sym_kNot; sym_kProcedure; sym_kProperty; sym_kRaise; sym_kRepeat;
   sym_kResourcestring; sym_kString; sym_kThreadvar; sym_kTry; sym_kType; sym_kUses; sym_kVar;
   sym_kWhile; sym_kWith]].

(** State 886. *)
Definition ts_parse_table_886 : parse_row :=
  [STATE 1266 [sym__procAttribute]; STATE 15237 [sym_procAttribute];
   STATE 912 [aux_sym_declProcFwd_repeat1]; ACTIONS 7882 [anon_sym_SEMI; anon_sym_COMMA];
   ACTIONS 7884 [anon_sym_LBRACK]; ACTIONS 7887 [anon_sym_LPAREN];
   ACTIONS 7882 [aux_sym__literalString_token1; anon_sym_POUND];
   ACTIONS 7887 [aux_sym__literalInt_token1]; ACTIONS 7882 [aux_sym__literalInt_token2;
   aux_sym__literalInt_token3]; ACTIONS 7887 [aux_sym__literalFloat_token1];
   ACTIONS 7882 [aux_sym_ppUsesBlock_token1; aux_sym_ppUsesBlock_token2;
   aux_sym_ppUsesBlock_token3]; ACTIONS 7887 [sym_kAdd; sym_kSub]; ACTIONS 7882 [sym_kAt;
   sym_kTrue; sym_kFalse]; ACTIONS 3 [sym__space]; ACTIONS 5 [sym_ppDirective];
   ACTIONS 3 [sym_comment]; ACTIONS 7882 [sym_ppFragmentExpr; sym__literalStringMultiline;
   sym_identifier]; ACTIONS 7889 [sym_kDefault; sym_kNodefault]; ACTIONS 7892 [sym_kDispId];
   ACTIONS 7882 [sym_kGeneric; sym_kSpecialize; sym_kOperator]; ACTIONS 7895 [sym_kPublic];
   ACTIONS 7889 [sym_kStatic; sym_kVirtual; sym_kAbstract; sym_kDynamic; sym_kOverride;
   sym_kOverload; sym_kReintroduce; sym_kStdcall; sym_kCdecl; sym_kCppdecl; sym_kPascal;
   sym_kRegister; sym_kMwpascal]; ACTIONS 7898 [sym_kMessage]; ACTIONS 7901 [sym_kDeprecated];
   ACTIONS 7889 [sym_kExperimental; sym_kPlatform; sym_kUnimplemented; sym_kCvar];
   ACTIONS 7904 [sym_kExport]; ACTIONS 7889 [sym_kFar; sym_kNear; sym_kSafecall; sym_kAssembler;
   sym_kNostackframe; sym_kInterrupt; sym_kNoreturn; sym_kIocheck; sym_kLocal; sym_kHardfloat;
   sym_kSoftfloat; sym_kMs_abi_default; sym_kMs_abi_cdecl; sym_kSaveregisters;
   sym_kSysv_abi_default; sym_kSysv_abi_cdecl; sym_kVectorcall; sym_kVarargs; sym_kWinapi];
   ACTIONS 7907 [sym_kAlias]; ACTIONS 7882 [sym_kAsm; sym_kBegin; sym_kCase; sym_kClass;
   sym_kConst; sym_kConstructor; sym_kDestructor; sym_kExports; sym_kFor; sym_kFunction;
   sym_kGoto; sym_kIf; sym_kInherited]; ACTIONS 1016 [sym_kInline]; ACTIONS 7882 [sym_kLabel;
   sym_kNil; sym_kNot; sym_kProcedure; sym_kProperty; sym_kRaise; sym_kRepeat;
   sym_kResourcestring; sym_kString; sym_kThreadvar; sym_kTry; sym_kType; sym_kUses; sym_kVar;
   sym_kWhile; sym_kWith]].

(** State 887. *)
Definition ts_parse_table_887 : parse_row :=
  [STATE 1266 [sym__procAttribute]; STATE 15237 [sym_procAttribute];
   STATE 888 [aux_sym_declProcFwd_repeat1]; ACTIONS 7910 [anon_sym_SEMI; anon_sym_COMMA];
   ACTIONS 7912 [anon_sym_LBRACK]; ACTIONS 7915 [anon_sym_LPAREN];
   ACTIONS 7910 [aux_sym__literalString_token1; anon_sym_POUND];
   ACTIONS 7915 [aux_sym__literalInt_token1]; ACTIONS 7910 [aux_sym__literalInt_token2;
   aux_sym__literalInt_token3]; ACTIONS 7915 [aux_sym__literalFloat_token1];
   ACTIONS 7910 [aux_sym_ppUsesBlock_token1; aux_sym_ppUsesBlock_token2;
   aux_sym_ppUsesBlock_token3]; ACTIONS 7915 [sym_kAdd; sym_kSub]; ACTIONS 7910 [sym_kAt;
   sym_kTrue; sym_kFalse]; ACTIONS 3 [sym__space]; ACTIONS 5 [sym_ppDirective];
   ACTIONS 3 [sym_comment]; ACTIONS 7910 [sym_ppFragmentExpr; sym__literalStringMultiline;
   sym_identifier]; ACTIONS 7917 [sym_kDefault; sym_kNodefault]; ACTIONS 7920 [sym_kDispId];
   ACTIONS 7910 [sym_kGeneric; sym_kSpecialize; sym_kOperator]; ACTIONS 7923 [sym_kPublic];
   ACTIONS 7917 [sym_kStatic; sym_kVirtual; sym_kAbstract; sym_kDynamic; sym_kOverride;
   sym_kOverload; sym_kReintroduce; sym_kStdcall; sym_kCdecl; sym_kCppdecl; sym_kPascal;
   sym_kRegister; sym_kMwpascal]; ACTIONS 7926 [sym_kMessage]; ACTIONS 7929 [sym_kDeprecated];
   ACTIONS 7917 [sym_kExperimental; sym_kPlatform; sym_kUnimplemented; sym_kCvar];
   ACTIONS 7932 [sym_kExport]; ACTIONS 7917 [sym_kFar; sym_kNear; sym_kSafecall; sym_kAssembler;
   sym_kNostackframe; sym_kInterrupt; sym_kNoreturn; sym_kIocheck; sym_kLocal; sym_kHardfloat;
   sym_kSoftfloat; sym_kMs_abi_default; sym_kMs_abi_cdecl; sym_kSaveregisters;
   sym_kSysv_abi_default; sym_kSysv_abi_cdecl; sym_kVectorcall; sym_kVarargs; sym_kWinapi];
   ACTIONS 7935 [sym_kAlias]; ACTIONS 7910 [sym_kAsm; sym_kBegin; sym_kCase; sym_kClass;
   sym_kConst; sym_kConstructor; sym_kDestructor; sym_kExports; sym_kFor; sym_kFunction;
   sym_kGoto; sym_kIf; sym_kInherited]; ACTIONS 1016 [sym_kInline]; ACTIONS 7910 [sym_kLabel;
   sym_kNil; sym_kNot; sym_kProcedure; sym_kProperty; sym_kRaise; sym_kRepeat;
   sym_kResourcestring; sym_kString; sym_kThreadvar; sym_kTry; sym_kType; sym_kUses; sym_kVar;
   sym_kWhile; sym_kWith]].

(** State 888. *)
Definition ts_parse_table_888 : parse_row :=
  [STATE 1266 [sym__procAttribute]; STATE 15237 [sym_procAttribute];
   STATE 912 [aux_sym_declProcFwd_repeat1]; ACTIONS 7938 [anon_sym_SEMI; anon_sym_COMMA];
   ACTIONS 7940 [anon_sym_LBRACK]; ACTIONS 7943 [anon_sym_LPAREN];
   ACTIONS 7938 [aux_sym__literalString_token1; anon_sym_POUND];
   ACTIONS 7943 [aux_sym__literalInt_token1]; ACTIONS 7938 [aux_sym__literalInt_token2;
   aux_sym__literalInt_token3]; ACTIONS 7943 [aux_sym__literalFloat_token1];
   ACTIONS 7938 [aux_sym_ppUsesBlock_token1; aux_sym_ppUsesBlock_token2;
   aux_sym_ppUsesBlock_token3]; ACTIONS 7943 [sym_kAdd; sym_kSub]; ACTIONS 7938 [sym_kAt;
   sym_kTrue; sym_kFalse]; ACTIONS 3 [sym__space]; ACTIONS 5 [sym_ppDirective];
   ACTIONS 3 [sym_comment]; ACTIONS 7938 [sym_ppFragmentExpr; sym__literalStringMultiline;
   sym_identifier]; ACTIONS 7945 [sym_kDefault; sym_kNodefault]; ACTIONS 7948 [sym_kDispId];
   ACTIONS 7938 [sym_kGeneric; sym_kSpecialize; sym_kOperator]; ACTIONS 7951 [sym_kPublic];
   ACTIONS 7945 [sym_kStatic; sym_kVirtual; sym_kAbstract; sym_kDynamic; sym_kOverride;
   sym_kOverload; sym_kReintroduce; sym_kStdcall; sym_kCdecl; sym_kCppdecl; sym_kPascal;
   sym_kRegister; sym_kMwpascal]; ACTIONS 7954 [sym_kMessage]; ACTIONS 7957 [sym_kDeprecated];
   ACTIONS 7945 [sym_kExperimental; sym_kPlatform; sym_kUnimplemented; sym_kCvar];
   ACTIONS 7960 [sym_kExport]; ACTIONS 7945 [sym_kFar; sym_kNear; sym_kSafecall; sym_kAssembler;
   sym_kNostackframe; sym_kInterrupt; sym_kNoreturn; sym_kIocheck; sym_kLocal; sym_kHardfloat;
   sym_kSoftfloat; sym_kMs_abi_default; sym_kMs_abi_cdecl; sym_kSaveregisters;
   sym_kSysv_abi_default; sym_kSysv_abi_cdecl; sym_kVectorcall; sym_kVarargs; sym_kWinapi];
   ACTIONS 7963 [sym_kAlias]; ACTIONS 7938 [sym_kAsm; sym_kBegin; sym_kCase; sym_kClass;
   sym_kConst; sym_kConstructor; sym_kDestructor; sym_kExports; sym_kFor; sym_kFunction;
   sym_kGoto; sym_kIf; sym_kInherited]; ACTIONS 1016 [sym_kInline]; ACTIONS 7938 [sym_kLabel;
   sym_kNil; sym_kNot; sym_kProcedure; sym_kProperty; sym_kRaise; sym_kRepeat;
   sym_kResourcestring; sym_kString; sym_kThreadvar; sym_kTry; sym_kType; sym_kUses; sym_kVar;
   sym_kWhile; sym_kWith]].

(** State 889. *)
Definition ts_parse_table_889 : parse_row :=
  [STATE 9071 [sym_if]; STATE 9069 [sym_ifElse; sym_while; sym_repeat; sym_for; sym_foreach;
   sym_try; sym_case; sym_block; sym_asm; sym_with; sym_raise; sym_statement; sym_goto;
   sym_labeledStatement; sym__statement]; STATE 12834 [sym_ifTr; sym_ifElseTr; sym_whileTr;
   sym_repeatTr; sym_forTr; sym_foreachTr; sym_tryTr; sym_caseTr]; STATE 12901 [sym_blockTr];
   STATE 12834 [sym_asmTr; sym_withTr; sym_raiseTr; sym_statementTr; sym_gotoTr;
   sym_labeledStatementTr; sym__statementTr]; STATE 12334 [sym_assignment];
   STATE 11914 [sym_varAssignDef]; STATE 12334 [sym_varDef; sym_constDef];
   STATE 1029 [sym_label]; STATE 7768 [sym__expr; sym_exprConditional]; STATE 7138 [sym__ref;
   sym_lambda; sym_inherited; sym_exprDot; sym_exprDeref; sym_exprAs; sym_exprTpl;
   sym_exprSubscript; sym_exprCall]; STATE 7768 [sym_exprBinary; sym_exprUnary];
   STATE 7138 [sym_exprParens; sym_exprBrackets; sym__literal; sym_literalString];
   STATE 6388 [sym__literalString; sym_literalChar]; STATE 7138 [sym_literalNumber];
   STATE 7299 [sym__literalInt; sym__literalFloat]; STATE 6388 [aux_sym_literalString_repeat1];
   ACTIONS 7966 [anon_sym_SEMI]; ACTIONS 7968 [anon_sym_LBRACK]; ACTIONS 7970 [anon_sym_LPAREN];
   ACTIONS 7972 [aux_sym__literalString_token1]; ACTIONS 7974 [anon_sym_POUND];
   ACTIONS 7976 [aux_sym__literalInt_token1]; ACTIONS 7978 [aux_sym__literalInt_token2;
   aux_sym__literalInt_token3]; ACTIONS 7976 [aux_sym__literalFloat_token1];
   ACTIONS 7980 [sym_kAdd; sym_kSub]; ACTIONS 7982 [sym_kAt]; ACTIONS 7984 [sym_kTrue;
   sym_kFalse]; ACTIONS 7986 [sym_labelNumber]; ACTIONS 3 [sym__space];
   ACTIONS 5 [sym_ppDirective]; ACTIONS 3 [sym_comment]; ACTIONS 7984 [sym_ppFragmentExpr];
   ACTIONS 7972 [sym__literalStringMultiline]; ACTIONS 7988 [sym_identifier];
   ACTIONS 7990 [sym_kSpecialize]; ACTIONS 7992 [sym_kOtherwise]; ACTIONS 7994 [sym_kAsm];
   ACTIONS 7996 [sym_kBegin]; ACTIONS 7998 [sym_kCase]; ACTIONS 8000 [sym_kConst];
   ACTIONS 7992 [sym_kElse; sym_kEnd]; ACTIONS 8002 [sym_kFor]; ACTIONS 8004 [sym_kFunction];
   ACTIONS 8006 [sym_kGoto]; ACTIONS 8008 [sym_kIf]; ACTIONS 8010 [sym_kInherited];
   ACTIONS 7984 [sym_kNil]; ACTIONS 7982 [sym_kNot]; ACTIONS 8004 [sym_kProcedure];
   ACTIONS 8012 [sym_kRaise]; ACTIONS 8014 [sym_kRepeat]; ACTIONS 8016 [sym_kString];
   ACTIONS 8018 [sym_kTry]; ACTIONS 8020 [sym_kVar]; ACTIONS 8022 [sym_kWhile];
   ACTIONS 8024 [sym_kWith]].

(** State 890. *)
Definition ts_parse_table_890 : parse_row :=
  [STATE 5970 [sym_if]; STATE 5935 [sym_ifElse; sym_while; sym_repeat; sym_for; sym_foreach;
   sym_try; sym_case; sym_block; sym_asm; sym_with; sym_raise; sym_statement; sym_goto;
   sym_labeledStatement; sym__statement]; STATE 12529 [sym_ifTr; sym_ifElseTr; sym_whileTr;
   sym_repeatTr; sym_forTr; sym_foreachTr; sym_tryTr; sym_caseTr]; STATE 12758 [sym_blockTr];
   STATE 12529 [sym_asmTr; sym_withTr; sym_raiseTr; sym_statementTr; sym_gotoTr;
   sym_labeledStatementTr; sym__statementTr]; STATE 12111 [sym_assignment];
   STATE 11928 [sym_varAssignDef]; STATE 12111 [sym_varDef; sym_constDef];
   STATE 1010 [sym_label]; STATE 7746 [sym__expr; sym_exprConditional]; STATE 7153 [sym__ref;
   sym_lambda; sym_inherited; sym_exprDot; sym_exprDeref; sym_exprAs; sym_exprTpl;
   sym_exprSubscript; sym_exprCall]; STATE 7746 [sym_exprBinary; sym_exprUnary];
   STATE 7153 [sym_exprParens; sym_exprBrackets; sym__literal; sym_literalString];
   STATE 6416 [sym__literalString; sym_literalChar]; STATE 7153 [sym_literalNumber];
   STATE 7250 [sym__literalInt; sym__literalFloat]; STATE 6416 [aux_sym_literalString_repeat1];
   ACTIONS 8026 [anon_sym_SEMI]; ACTIONS 7422 [anon_sym_LBRACK]; ACTIONS 7424 [anon_sym_LPAREN];
   ACTIONS 7426 [aux_sym__literalString_token1]; ACTIONS 7428 [anon_sym_POUND];
   ACTIONS 7430 [aux_sym__literalInt_token1]; ACTIONS 7432 [aux_sym__literalInt_token2;
   aux_sym__literalInt_token3]; ACTIONS 7430 [aux_sym__literalFloat_token1];
   ACTIONS 7434 [sym_kAdd; sym_kSub]; ACTIONS 7436 [sym_kAt]; ACTIONS 7438 [sym_kTrue;
   sym_kFalse]; ACTIONS 7440 [sym_labelNumber]; ACTIONS 3 [sym__space];
   ACTIONS 5 [sym_ppDirective]; ACTIONS 3 [sym_comment]; ACTIONS 7438 [sym_ppFragmentExpr];
   ACTIONS 7426 [sym__literalStringMultiline]; ACTIONS 7442 [sym_identifier];
   ACTIONS 7444 [sym_kSpecialize]; ACTIONS 7446 [sym_kAsm]; ACTIONS 7448 [sym_kBegin];
   ACTIONS 7450 [sym_kCase]; ACTIONS 7452 [sym_kConst]; ACTIONS 8028 [sym_kElse];
   ACTIONS 3230 [sym_kExcept; sym_kFinally]; ACTIONS 7454 [sym_kFor];
   ACTIONS 7456 [sym_kFunction]; ACTIONS 7458 [sym_kGoto]; ACTIONS 7460 [sym_kIf];
   ACTIONS 7462 [sym_kInherited]; ACTIONS 7438 [sym_kNil]; ACTIONS 7436 [sym_kNot];
   ACTIONS 7456 [sym_kProcedure]; ACTIONS 7464 [sym_kRaise]; ACTIONS 7466 [sym_kRepeat];
   ACTIONS 7468 [sym_kString]; ACTIONS 7470 [sym_kTry]; ACTIONS 7472 [sym_kVar];
   ACTIONS 7474 [sym_kWhile]; ACTIONS 7476 [sym_kWith]].

(** State 891. *)
Definition ts_parse_table_891 : parse_row :=
  [STATE 1266 [sym__procAttribute]; STATE 15237 [sym_procAttribute];
   STATE 912 [aux_sym_declProcFwd_repeat1]; ACTIONS 8030 [anon_sym_SEMI; anon_sym_COMMA];
   ACTIONS 8032 [anon_sym_LBRACK]; ACTIONS 8035 [anon_sym_LPAREN];
   ACTIONS 8030 [aux_sym__literalString_token1; anon_sym_POUND];
   ACTIONS 8035 [aux_sym__literalInt_token1]; ACTIONS 8030 [aux_sym__literalInt_token2;
   aux_sym__literalInt_token3]; ACTIONS 8035 [aux_sym__literalFloat_token1];
   ACTIONS 8030 [aux_sym_ppUsesBlock_token1; aux_sym_ppUsesBlock_token2;
   aux_sym_ppUsesBlock_token3]; ACTIONS 8035 [sym_kAdd; sym_kSub]; ACTIONS 8030 [sym_kAt;
   sym_kTrue; sym_kFalse]; ACTIONS 3 [sym__space]; ACTIONS 5 [sym_ppDirective];
   ACTIONS 3 [sym_comment]; ACTIONS 8030 [sym_ppFragmentExpr; sym__literalStringMultiline;
   sym_identifier]; ACTIONS 8037 [sym_kDefault; sym_kNodefault]; ACTIONS 8040 [sym_kDispId];
   ACTIONS 8030 [sym_kGeneric; sym_kSpecialize; sym_kOperator]; ACTIONS 8043 [sym_kPublic];
   ACTIONS 8037 [sym_kStatic; sym_kVirtual; sym_kAbstract; sym_kDynamic; sym_kOverride;
   sym_kOverload; sym_kReintroduce; sym_kStdcall; sym_kCdecl; sym_kCppdecl; sym_kPascal;
   sym_kRegister; sym_kMwpascal]; ACTIONS 8046 [sym_kMessage]; ACTIONS 8049 [sym_kDeprecated];
   ACTIONS 8037 [sym_kExperimental; sym_kPlatform; sym_kUnimplemented; sym_kCvar];
   ACTIONS 8052 [sym_kExport]; ACTIONS 8037 [sym_kFar; sym_kNear; sym_kSafecall; sym_kAssembler;
   sym_kNostackframe; sym_kInterrupt; sym_kNoreturn; sym_kIocheck; sym_kLocal; sym_kHardfloat;
   sym_kSoftfloat; sym_kMs_abi_default; sym_kMs_abi_cdecl; sym_kSaveregisters;
   sym_kSysv_abi_default; sym_kSysv_abi_cdecl; sym_kVectorcall; sym_kVarargs; sym_kWinapi];
   ACTIONS 8055 [sym_kAlias]; ACTIONS 8030 [sym_kAsm; sym_kBegin; sym_kCase; sym_kClass;
   sym_kConst; sym_kConstructor; sym_kDestructor; sym_kExports; sym_kFor; sym_kFunction;
   sym_kGoto; sym_kIf; sym_kInherited]; ACTIONS 1016 [sym_kInline]; ACTIONS 8030 [sym_kLabel;
   sym_kNil; sym_kNot; sym_kProcedure; sym_kProperty; sym_kRaise; sym_kRepeat;
   sym_kResourcestring; sym_kString; sym_kThreadvar; sym_kTry; sym_kType; sym_kUses; sym_kVar;
   sym_kWhile; sym_kWith]].

(** State 892. *)
Definition ts_parse_table_892 : parse_row :=
  [STATE 1266 [sym__procAttribute]; STATE 15237 [sym_procAttribute];
   STATE 906 [aux_sym_declProcFwd_repeat1]; ACTIONS 8058 [anon_sym_SEMI; anon_sym_COMMA];
   ACTIONS 8060 [anon_sym_LBRACK]; ACTIONS 8063 [anon_sym_LPAREN];
   ACTIONS 8058 [aux_sym__literalString_token1; anon_sym_POUND];
   ACTIONS 8063 [aux_sym__literalInt_token1]; ACTIONS 8058 [aux_sym__literalInt_token2;
   aux_sym__literalInt_token3]; ACTIONS 8063 [aux_sym__literalFloat_token1];
   ACTIONS 8058 [aux_sym_ppUsesBlock_token1; aux_sym_ppUsesBlock_token2;
   aux_sym_ppUsesBlock_token3]; ACTIONS 8063 [sym_kAdd; sym_kSub]; ACTIONS 8058 [sym_kAt;
   sym_kTrue; sym_kFalse]; ACTIONS 3 [sym__space]; ACTIONS 5 [sym_ppDirective];
   ACTIONS 3 [sym_comment]; ACTIONS 8058 [sym_ppFragmentExpr; sym__literalStringMultiline;
   sym_identifier]; ACTIONS 8065 [sym_kDefault; sym_kNodefault]; ACTIONS 8068 [sym_kDispId];
   ACTIONS 8058 [sym_kGeneric; sym_kSpecialize; sym_kOperator]; ACTIONS 8071 [sym_kPublic];
   ACTIONS 8065 [sym_kStatic; sym_kVirtual; sym_kAbstract; sym_kDynamic; sym_kOverride;
   sym_kOverload; sym_kReintroduce; sym_kStdcall; sym_kCdecl; sym_kCppdecl; sym_kPascal;
   sym_kRegister; sym_kMwpascal]; ACTIONS 8074 [sym_kMessage]; ACTIONS 8077 [sym_kDeprecated];
   ACTIONS 8065 [sym_kExperimental; sym_kPlatform; sym_kUnimplemented; sym_kCvar];
   ACTIONS 8080 [sym_kExport]; ACTIONS 8065 [sym_kFar; sym_kNear; sym_kSafecall; sym_kAssembler;
   sym_kNostackframe; sym_kInterrupt; sym_kNoreturn; sym_kIocheck; sym_kLocal; sym_kHardfloat;
   sym_kSoftfloat; sym_kMs_abi_default; sym_kMs_abi_cdecl; sym_kSaveregisters;
   sym_kSysv_abi_default; sym_kSysv_abi_cdecl; sym_kVectorcall; sym_kVarargs; sym_kWinapi];
   ACTIONS 8083 [sym_kAlias]; ACTIONS 8058 [sym_kAsm; sym_kBegin; sym_kCase; sym_kClass;
   sym_kConst; sym_kConstructor; sym_kDestructor; sym_kExports; sym_kFor; sym_kFunction;
   sym_kGoto; sym_kIf; sym_kInherited]; ACTIONS 1016 [sym_kInline]; ACTIONS 8058 [sym_kLabel;
   sym_kNil; sym_kNot; sym_kProcedure; sym_kProperty; sym_kRaise; sym_kRepeat;
   sym_kResourcestring; sym_kString; sym_kThreadvar; sym_kTry; sym_kType; sym_kUses; sym_kVar;
   sym_kWhile; sym_kWith]].

(** State 893. *)
Definition ts_parse_table_893 : parse_row :=
  [STATE 5970 [sym_if]; STATE 6011 [sym_ifElse; sym_while; sym_repeat; sym_for; sym_foreach;
   sym_try; sym_case; sym_block; sym_asm; sym_with; sym_raise; sym_statement; sym_goto;
   sym_labeledStatement; sym__statement]; STATE 12529 [sym_ifTr; sym_ifElseTr; sym_whileTr;
   sym_repeatTr; sym_forTr; sym_foreachTr; sym_tryTr; sym_caseTr]; STATE 12758 [sym_blockTr];
   STATE 12529 [sym_asmTr; sym_withTr; sym_raiseTr; sym_statementTr; sym_gotoTr;
   sym_labeledStatementTr; sym__statementTr]; STATE 12174 [sym_assignment];
   STATE 11928 [sym_varAssignDef]; STATE 12174 [sym_varDef; sym_constDef]; STATE 992 [sym_label];
   STATE 7749 [sym__expr; sym_exprConditional]; STATE 7153 [sym__ref; sym_lambda; sym_inherited;
   sym_exprDot; sym_exprDeref; sym_exprAs; sym_exprTpl; sym_exprSubscript; sym_exprCall];
   STATE 7749 [sym_exprBinary; sym_exprUnary]; STATE 7153 [sym_exprParens; sym_exprBrackets;
   sym__literal; sym_literalString]; STATE 6416 [sym__literalString; sym_literalChar];
   STATE 7153 [sym_literalNumber]; STATE 7250 [sym__literalInt; sym__literalFloat];
   STATE 6416 [aux_sym_literalString_repeat1]; ACTIONS 8086 [anon_sym_SEMI];
   ACTIONS 7422 [anon_sym_LBRACK]; ACTIONS 7424 [anon_sym_LPAREN];
   ACTIONS 7426 [aux_sym__literalString_token1]; ACTIONS 7428 [anon_sym_POUND];
   ACTIONS 7430 [aux_sym__literalInt_token1]; ACTIONS 7432 [aux_sym__literalInt_token2;
   aux_sym__literalInt_token3]; ACTIONS 7430 [aux_sym__literalFloat_token1];
   ACTIONS 7434 [sym_kAdd; sym_kSub]; ACTIONS 7436 [sym_kAt]; ACTIONS 7438 [sym_kTrue;
   sym_kFalse]; ACTIONS 7440 [sym_labelNumber]; ACTIONS 3 [sym__space];
   ACTIONS 5 [sym_ppDirective]; ACTIONS 3 [sym_comment]; ACTIONS 7438 [sym_ppFragmentExpr];
   ACTIONS 7426 [sym__literalStringMultiline]; ACTIONS 7442 [sym_identifier];
   ACTIONS 7444 [sym_kSpecialize]; ACTIONS 8088 [sym_kAsm]; ACTIONS 8090 [sym_kBegin];
   ACTIONS 8092 [sym_kCase]; ACTIONS 7452 [sym_kConst]; ACTIONS 8028 [sym_kElse];
   ACTIONS 3230 [sym_kExcept; sym_kFinally]; ACTIONS 8094 [sym_kFor];
   ACTIONS 7456 [sym_kFunction]; ACTIONS 8096 [sym_kGoto]; ACTIONS 8098 [sym_kIf];
   ACTIONS 7462 [sym_kInherited]; ACTIONS 7438 [sym_kNil]; ACTIONS 7436 [sym_kNot];
   ACTIONS 7456 [sym_kProcedure]; ACTIONS 8100 [sym_kRaise]; ACTIONS 8102 [sym_kRepeat];
   ACTIONS 7468 [sym_kString]; ACTIONS 8104 [sym_kTry]; ACTIONS 7472 [sym_kVar];
   ACTIONS 8106 [sym_kWhile]; ACTIONS 8108 [sym_kWith]].

(** State 894. *)
Definition ts_parse_table_894 : parse_row :=
  [STATE 1266 [sym__procAttribute]; STATE 15237 [sym_procAttribute];
   STATE 913 [aux_sym_declProcFwd_repeat1]; ACTIONS 8110 [anon_sym_SEMI; anon_sym_COMMA];
   ACTIONS 8112 [anon_sym_LBRACK]; ACTIONS 8115 [anon_sym_LPAREN];
   ACTIONS 8110 [aux_sym__literalString_token1; anon_sym_POUND];
   ACTIONS 8115 [aux_sym__literalInt_token1]; ACTIONS 8110 [aux_sym__literalInt_token2;
   aux_sym__literalInt_token3]; ACTIONS 8115 [aux_sym__literalFloat_token1];
   ACTIONS 8110 [aux_sym_ppUsesBlock_token1; aux_sym_ppUsesBlock_token2;
   aux_sym_ppUsesBlock_token3]; ACTIONS 8115 [sym_kAdd; sym_kSub]; ACTIONS 8110 [sym_kAt;
   sym_kTrue; sym_kFalse]; ACTIONS 3 [sym__space]; ACTIONS 5 [sym_ppDirective];
   ACTIONS 3 [sym_comment]; ACTIONS 8110 [sym_ppFragmentExpr; sym__literalStringMultiline;
   sym_identifier]; ACTIONS 8117 [sym_kDefault; sym_kNodefault]; ACTIONS 8120 [sym_kDispId];
   ACTIONS 8110 [sym_kGeneric; sym_kSpecialize; sym_kOperator]; ACTIONS 8123 [sym_kPublic];
   ACTIONS 8117 [sym_kStatic; sym_kVirtual; sym_kAbstract; sym_kDynamic; sym_kOverride;
   sym_kOverload; sym_kReintroduce; sym_kStdcall; sym_kCdecl; sym_kCppdecl; sym_kPascal;
   sym_kRegister; sym_kMwpascal]; ACTIONS 8126 [sym_kMessage]; ACTIONS 8129 [sym_kDeprecated];
   ACTIONS 8117 [sym_kExperimental; sym_kPlatform; sym_kUnimplemented; sym_kCvar];
   ACTIONS 8132 [sym_kExport]; ACTIONS 8117 [sym_kFar; sym_kNear; sym_kSafecall; sym_kAssembler;
   sym_kNostackframe; sym_kInterrupt; sym_kNoreturn; sym_kIocheck; sym_kLocal; sym_kHardfloat;
   sym_kSoftfloat; sym_kMs_abi_default; sym_kMs_abi_cdecl; sym_kSaveregisters;
   sym_kSysv_abi_default; sym_kSysv_abi_cdecl; sym_kVectorcall; sym_kVarargs; sym_kWinapi];
   ACTIONS 8135 [sym_kAlias]; ACTIONS 8110 [sym_kAsm; sym_kBegin; sym_kCase; sym_kClass;
   sym_kConst; sym_kConstructor; sym_kDestructor; sym_kExports; sym_kFor; sym_kFunction;
   sym_kGoto; sym_kIf; sym_kInherited]; ACTIONS 1016 [sym_kInline]; ACTIONS 8110 [sym_kLabel;
   sym_kNil; sym_kNot; sym_kProcedure; sym_kProperty; sym_kRaise; sym_kRepeat;
   sym_kResourcestring; sym_kString; sym_kThreadvar; sym_kTry; sym_kType; sym_kUses; sym_kVar;
   sym_kWhile; sym_kWith]].

(** State 895. *)
Definition ts_parse_table_895 : parse_row :=
  [STATE 1266 [sym__procAttribute]; STATE 15237 [sym_procAttribute];
   STATE 905 [aux_sym_declProcFwd_repeat1]; ACTIONS 8138 [anon_sym_SEMI; anon_sym_COMMA];
   ACTIONS 8140 [anon_sym_LBRACK]; ACTIONS 8143 [anon_sym_LPAREN];
   ACTIONS 8138 [aux_sym__literalString_token1; anon_sym_POUND];
   ACTIONS 8143 [aux_sym__literalInt_token1]; ACTIONS 8138 [aux_sym__literalInt_token2;
   aux_sym__literalInt_token3]; ACTIONS 8143 [aux_sym__literalFloat_token1];
   ACTIONS 8138 [aux_sym_ppUsesBlock_token1; aux_sym_ppUsesBlock_token2;
   aux_sym_ppUsesBlock_token3]; ACTIONS 8143 [sym_kAdd; sym_kSub]; ACTIONS 8138 [sym_kAt;
   sym_kTrue; sym_kFalse]; ACTIONS 3 [sym__space]; ACTIONS 5 [sym_ppDirective];
   ACTIONS 3 [sym_comment]; ACTIONS 8138 [sym_ppFragmentExpr; sym__literalStringMultiline;
   sym_identifier]; ACTIONS 8145 [sym_kDefault; sym_kNodefault]; ACTIONS 8148 [sym_kDispId];
   ACTIONS 8138 [sym_kGeneric; sym_kSpecialize; sym_kOperator]; ACTIONS 8151 [sym_kPublic];
   ACTIONS 8145 [sym_kStatic; sym_kVirtual; sym_kAbstract; sym_kDynamic; sym_kOverride;
   sym_kOverload; sym_kReintroduce; sym_kStdcall; sym_kCdecl; sym_kCppdecl; sym_kPascal;
   sym_kRegister; sym_kMwpascal]; ACTIONS 8154 [sym_kMessage]; ACTIONS 8157 [sym_kDeprecated];
   ACTIONS 8145 [sym_kExperimental; sym_kPlatform; sym_kUnimplemented; sym_kCvar];
   ACTIONS 8160 [sym_kExport]; ACTIONS 8145 [sym_kFar; sym_kNear; sym_kSafecall; sym_kAssembler;
   sym_kNostackframe; sym_kInterrupt; sym_kNoreturn; sym_kIocheck; sym_kLocal; sym_kHardfloat;
   sym_kSoftfloat; sym_kMs_abi_default; sym_kMs_abi_cdecl; sym_kSaveregisters;
   sym_kSysv_abi_default; sym_kSysv_abi_cdecl; sym_kVectorcall; sym_kVarargs; sym_kWinapi];
   ACTIONS 8163 [sym_kAlias]; ACTIONS 8138 [sym_kAsm; sym_kBegin; sym_kCase; sym_kClass;
   sym_kConst; sym_kConstructor; sym_kDestructor; sym_kExports; sym_kFor; sym_kFunction;
   sym_kGoto; sym_kIf; sym_kInherited]; ACTIONS 1016 [sym_kInline]; ACTIONS 8138 [sym_kLabel;
   sym_kNil; sym_kNot; sym_kProcedure; sym_kProperty; sym_kRaise; sym_kRepeat;
   sym_kResourcestring; sym_kString; sym_kThreadvar; sym_kTry; sym_kType; sym_kUses; sym_kVar;
   sym_kWhile; sym_kWith]].

(** State 896. *)
Definition ts_parse_table_896 : parse_row :=
  [STATE 1266 [sym__procAttribute]; STATE 15237 [sym_procAttribute];
   STATE 912 [aux_sym_declProcFwd_repeat1]; ACTIONS 8166 [anon_sym_SEMI; anon_sym_COMMA];
   ACTIONS 8168 [anon_sym_LBRACK]; ACTIONS 8171 [anon_sym_LPAREN];
   ACTIONS 8166 [aux_sym__literalString_token1; anon_sym_POUND];
   ACTIONS 8171 [aux_sym__literalInt_token1]; ACTIONS 8166 [aux_sym__literalInt_token2;
   aux_sym__literalInt_token3]; ACTIONS 8171 [aux_sym__literalFloat_token1];
   ACTIONS 8166 [aux_sym_ppUsesBlock_token1; aux_sym_ppUsesBlock_token2;
   aux_sym_ppUsesBlock_token3]; ACTIONS 8171 [sym_kAdd; sym_kSub]; ACTIONS 8166 [sym_kAt;
   sym_kTrue; sym_kFalse]; ACTIONS 3 [sym__space]; ACTIONS 5 [sym_ppDirective];
   ACTIONS 3 [sym_comment]; ACTIONS 8166 [sym_ppFragmentExpr; sym__literalStringMultiline;
   sym_identifier]; ACTIONS 8173 [sym_kDefault; sym_kNodefault]; ACTIONS 8176 [sym_kDispId];
   ACTIONS 8166 [sym_kGeneric; sym_kSpecialize; sym_kOperator]; ACTIONS 8179 [sym_kPublic];
   ACTIONS 8173 [sym_kStatic; sym_kVirtual; sym_kAbstract; sym_kDynamic; sym_kOverride;
   sym_kOverload; sym_kReintroduce; sym_kStdcall; sym_kCdecl; sym_kCppdecl; sym_kPascal;
   sym_kRegister; sym_kMwpascal]; ACTIONS 8182 [sym_kMessage]; ACTIONS 8185 [sym_kDeprecated];
   ACTIONS 8173 [sym_kExperimental; sym_kPlatform; sym_kUnimplemented; sym_kCvar];
   ACTIONS 8188 [sym_kExport]; ACTIONS 8173 [sym_kFar; sym_kNear; sym_kSafecall; sym_kAssembler;
   sym_kNostackframe; sym_kInterrupt; sym_kNoreturn; sym_kIocheck; sym_kLocal; sym_kHardfloat;
   sym_kSoftfloat; sym_kMs_abi_default; sym_kMs_abi_cdecl; sym_kSaveregisters;
   sym_kSysv_abi_default; sym_kSysv_abi_cdecl; sym_kVectorcall; sym_kVarargs; sym_kWinapi];
   ACTIONS 8191 [sym_kAlias]; ACTIONS 8166 [sym_kAsm; sym_kBegin; sym_kCase; sym_kClass;
   sym_kConst; sym_kConstructor; sym_kDestructor; sym_kExports; sym_kFor; sym_kFunction;
   sym_kGoto; sym_kIf; sym_kInherited]; ACTIONS 1016 [sym_kInline]; ACTIONS 8166 [sym_kLabel;
   sym_kNil; sym_kNot; sym_kProcedure; sym_kProperty; sym_kRaise; sym_kRepeat;
   sym_kResourcestring; sym_kString; sym_kThreadvar; sym_kTry; sym_kType; sym_kUses; sym_kVar;
   sym_kWhile; sym_kWith]].

(** State 897. *)
Definition ts_parse_table_897 : parse_row :=
  [STATE 1266 [sym__procAttribute]; STATE 15237 [sym_procAttribute];
   STATE 917 [aux_sym_declProcFwd_repeat1]; ACTIONS 8194 [anon_sym_SEMI; anon_sym_COMMA];
   ACTIONS 8196 [anon_sym_LBRACK]; ACTIONS 8199 [anon_sym_LPAREN];
   ACTIONS 8194 [aux_sym__literalString_token1; anon_sym_POUND];
   ACTIONS 8199 [aux_sym__literalInt_token1]; ACTIONS 8194 [aux_sym__literalInt_token2;
   aux_sym__literalInt_token3]; ACTIONS 8199 [aux_sym__literalFloat_token1];
   ACTIONS 8194 [aux_sym_ppUsesBlock_token1; aux_sym_ppUsesBlock_token2;
   aux_sym_ppUsesBlock_token3]; ACTIONS 8199 [sym_kAdd; sym_kSub]; ACTIONS 8194 [sym_kAt;
   sym_kTrue; sym_kFalse]; ACTIONS 3 [sym__space]; ACTIONS 5 [sym_ppDirective];
   ACTIONS 3 [sym_comment]; ACTIONS 8194 [sym_ppFragmentExpr; sym__literalStringMultiline;
   sym_identifier]; ACTIONS 8201 [sym_kDefault; sym_kNodefault]; ACTIONS 8204 [sym_kDispId];
   ACTIONS 8194 [sym_kGeneric; sym_kSpecialize; sym_kOperator]; ACTIONS 8207 [sym_kPublic];
   ACTIONS 8201 [sym_kStatic; sym_kVirtual; sym_kAbstract; sym_kDynamic; sym_kOverride;
   sym_kOverload; sym_kReintroduce; sym_kStdcall; sym_kCdecl; sym_kCppdecl; sym_kPascal;
   sym_kRegister; sym_kMwpascal]; ACTIONS 8210 [sym_kMessage]; ACTIONS 8213 [sym_kDeprecated];
   ACTIONS 8201 [sym_kExperimental; sym_kPlatform; sym_kUnimplemented; sym_kCvar];
   ACTIONS 8216 [sym_kExport]; ACTIONS 8201 [sym_kFar; sym_kNear; sym_kSafecall; sym_kAssembler;
   sym_kNostackframe; sym_kInterrupt; sym_kNoreturn; sym_kIocheck; sym_kLocal; sym_kHardfloat;
   sym_kSoftfloat; sym_kMs_abi_default; sym_kMs_abi_cdecl; sym_kSaveregisters;
   sym_kSysv_abi_default; sym_kSysv_abi_cdecl; sym_kVectorcall; sym_kVarargs; sym_kWinapi];
   ACTIONS 8219 [sym_kAlias]; ACTIONS 8194 [sym_kAsm; sym_kBegin; sym_kCase; sym_kClass;
   sym_kConst; sym_kConstructor; sym_kDestructor; sym_kExports; sym_kFor; sym_kFunction;
   sym_kGoto; sym_kIf; sym_kInherited]; ACTIONS 1016 [sym_kInline]; ACTIONS 8194 [sym_kLabel;
   sym_kNil; sym_kNot; sym_kProcedure; sym_kProperty; sym_kRaise; sym_kRepeat;
   sym_kResourcestring; sym_kString; sym_kThreadvar; sym_kTry; sym_kType; sym_kUses; sym_kVar;
   sym_kWhile; sym_kWith]].

(** State 898. *)
Definition ts_parse_table_898 : parse_row :=
  [STATE 1266 [sym__procAttribute]; STATE 15237 [sym_procAttribute];
   STATE 921 [aux_sym_declProcFwd_repeat1]; ACTIONS 8222 [anon_sym_SEMI; anon_sym_COMMA];
   ACTIONS 8224 [anon_sym_LBRACK]; ACTIONS 8227 [anon_sym_LPAREN];
   ACTIONS 8222 [aux_sym__literalString_token1; anon_sym_POUND];
   ACTIONS 8227 [aux_sym__literalInt_token1]; ACTIONS 8222 [aux_sym__literalInt_token2;
   aux_sym__literalInt_token3]; ACTIONS 8227 [aux_sym__literalFloat_token1];
   ACTIONS 8222 [aux_sym_ppUsesBlock_token1; aux_sym_ppUsesBlock_token2;
   aux_sym_ppUsesBlock_token3]; ACTIONS 8227 [sym_kAdd; sym_kSub]; ACTIONS 8222 [sym_kAt;
   sym_kTrue; sym_kFalse]; ACTIONS 3 [sym__space]; ACTIONS 5 [sym_ppDirective];
   ACTIONS 3 [sym_comment]; ACTIONS 8222 [sym_ppFragmentExpr; sym__literalStringMultiline;
   sym_identifier]; ACTIONS 8229 [sym_kDefault; sym_kNodefault]; ACTIONS 8232 [sym_kDispId];
   ACTIONS 8222 [sym_kGeneric; sym_kSpecialize; sym_kOperator]; ACTIONS 8235 [sym_kPublic];
   ACTIONS 8229 [sym_kStatic; sym_kVirtual; sym_kAbstract; sym_kDynamic; sym_kOverride;
   sym_kOverload; sym_kReintroduce; sym_kStdcall; sym_kCdecl; sym_kCppdecl; sym_kPascal;
   sym_kRegister; sym_kMwpascal]; ACTIONS 8238 [sym_kMessage]; ACTIONS 8241 [sym_kDeprecated];
   ACTIONS 8229 [sym_kExperimental; sym_kPlatform; sym_kUnimplemented; sym_kCvar];
   ACTIONS 8244 [sym_kExport]; ACTIONS 8229 [sym_kFar; sym_kNear; sym_kSafecall; sym_kAssembler;
   sym_kNostackframe; sym_kInterrupt; sym_kNoreturn; sym_kIocheck; sym_kLocal; sym_kHardfloat;
   sym_kSoftfloat; sym_kMs_abi_default; sym_kMs_abi_cdecl; sym_kSaveregisters;
   sym_kSysv_abi_default; sym_kSysv_abi_cdecl; sym_kVectorcall; sym_kVarargs; sym_kWinapi];
   ACTIONS 8247 [sym_kAlias]; ACTIONS 8222 [sym_kAsm; sym_kBegin; sym_kCase; sym_kClass;
   sym_kConst; sym_kConstructor; sym_kDestructor; sym_kExports; sym_kFor; sym_kFunction;
   sym_kGoto; sym_kIf; sym_kInherited]; ACTIONS 1016 [sym_kInline]; ACTIONS 8222 [sym_kLabel;
   sym_kNil; sym_kNot; sym_kProcedure; sym_kProperty; sym_kRaise; sym_kRepeat;
   sym_kResourcestring; sym_kString; sym_kThreadvar; sym_kTry; sym_kType; sym_kUses; sym_kVar;
   sym_kWhile; sym_kWith]].

(** State 899. *)
Definition ts_parse_table_899 : parse_row :=
  [STATE 1266 [sym__procAttribute]; STATE 15237 [sym_procAttribute];
   STATE 908 [aux_sym_declProcFwd_repeat1]; ACTIONS 8250 [anon_sym_SEMI; anon_sym_COMMA];
   ACTIONS 8252 [anon_sym_LBRACK]; ACTIONS 8255 [anon_sym_LPAREN];
   ACTIONS 8250 [aux_sym__literalString_token1; anon_sym_POUND];
   ACTIONS 8255 [aux_sym__literalInt_token1]; ACTIONS 8250 [aux_sym__literalInt_token2;
   aux_sym__literalInt_token3]; ACTIONS 8255 [aux_sym__literalFloat_token1];
   ACTIONS 8250 [aux_sym_ppUsesBlock_token1; aux_sym_ppUsesBlock_token2;
   aux_sym_ppUsesBlock_token3]; ACTIONS 8255 [sym_kAdd; sym_kSub]; ACTIONS 8250 [sym_kAt;
   sym_kTrue; sym_kFalse]; ACTIONS 3 [sym__space]; ACTIONS 5 [sym_ppDirective];
   ACTIONS 3 [sym_comment]; ACTIONS 8250 [sym_ppFragmentExpr; sym__literalStringMultiline;
   sym_identifier]; ACTIONS 8257 [sym_kDefault; sym_kNodefault]; ACTIONS 8260 [sym_kDispId];
   ACTIONS 8250 [sym_kGeneric; sym_kSpecialize; sym_kOperator]; ACTIONS 8263 [sym_kPublic];
   ACTIONS 8257 [sym_kStatic; sym_kVirtual; sym_kAbstract; sym_kDynamic; sym_kOverride;
   sym_kOverload; sym_kReintroduce; sym_kStdcall; sym_kCdecl; sym_kCppdecl; sym_kPascal;
   sym_kRegister; sym_kMwpascal]; ACTIONS 8266 [sym_kMessage]; ACTIONS 8269 [sym_kDeprecated];
   ACTIONS 8257 [sym_kExperimental; sym_kPlatform; sym_kUnimplemented; sym_kCvar];
   ACTIONS 8272 [sym_kExport]; ACTIONS 8257 [sym_kFar; sym_kNear; sym_kSafecall; sym_kAssembler;
   sym_kNostackframe; sym_kInterrupt; sym_kNoreturn; sym_kIocheck; sym_kLocal; sym_kHardfloat;
   sym_kSoftfloat; sym_kMs_abi_default; sym_kMs_abi_cdecl; sym_kSaveregisters;
   sym_kSysv_abi_default; sym_kSysv_abi_cdecl; sym_kVectorcall; sym_kVarargs; sym_kWinapi];
   ACTIONS 8275 [sym_kAlias]; ACTIONS 8250 [sym_kAsm; sym_kBegin; sym_kCase; sym_kClass;
   sym_kConst; sym_kConstructor; sym_kDestructor; sym_kExports; sym_kFor; sym_kFunction;
   sym_kGoto; sym_kIf; sym_kInherited]; ACTIONS 1016 [sym_kInline]; ACTIONS 8250 [sym_kLabel;
   sym_kNil; sym_kNot; sym_kProcedure; sym_kProperty; sym_kRaise; sym_kRepeat;
   sym_kResourcestring; sym_kString; sym_kThreadvar; sym_kTry; sym_kType; sym_kUses; sym_kVar;
   sym_kWhile; sym_kWith]].

(** State 900. *)
Definition ts_parse_table_900 : parse_row :=
  [STATE 1266 [sym__procAttribute]; STATE 15237 [sym_procAttribute];
   STATE 912 [aux_sym_declProcFwd_repeat1]; ACTIONS 8278 [anon_sym_SEMI; anon_sym_COMMA];
   ACTIONS 8280 [anon_sym_LBRACK]; ACTIONS 8283 [anon_sym_LPAREN];
   ACTIONS 8278 [aux_sym__literalString_token1; anon_sym_POUND];
   ACTIONS 8283 [aux_sym__literalInt_token1]; ACTIONS 8278 [aux_sym__literalInt_token2;
   aux_sym__literalInt_token3]; ACTIONS 8283 [aux_sym__literalFloat_token1];
   ACTIONS 8278 [aux_sym_ppUsesBlock_token1; aux_sym_ppUsesBlock_token2;
   aux_sym_ppUsesBlock_token3]; ACTIONS 8283 [sym_kAdd; sym_kSub]; ACTIONS 8278 [sym_kAt;
   sym_kTrue; sym_kFalse]; ACTIONS 3 [sym__space]; ACTIONS 5 [sym_ppDirective];
   ACTIONS 3 [sym_comment]; ACTIONS 8278 [sym_ppFragmentExpr; sym__literalStringMultiline;
   sym_identifier]; ACTIONS 8285 [sym_kDefault; sym_kNodefault]; ACTIONS 8288 [sym_kDispId];
   ACTIONS 8278 [sym_kGeneric; sym_kSpecialize; sym_kOperator]; ACTIONS 8291 [sym_kPublic];
   ACTIONS 8285 [sym_kStatic; sym_kVirtual; sym_kAbstract; sym_kDynamic; sym_kOverride;
   sym_kOverload; sym_kReintroduce; sym_kStdcall; sym_kCdecl; sym_kCppdecl; sym_kPascal;
   sym_kRegister; sym_kMwpascal]; ACTIONS 8294 [sym_kMessage]; ACTIONS 8297 [sym_kDeprecated];
   ACTIONS 8285 [sym_kExperimental; sym_kPlatform; sym_kUnimplemented; sym_kCvar];
   ACTIONS 8300 [sym_kExport]; ACTIONS 8285 [sym_kFar; sym_kNear; sym_kSafecall; sym_kAssembler;
   sym_kNostackframe; sym_kInterrupt; sym_kNoreturn; sym_kIocheck; sym_kLocal; sym_kHardfloat;
   sym_kSoftfloat; sym_kMs_abi_default; sym_kMs_abi_cdecl; sym_kSaveregisters;
   sym_kSysv_abi_default; sym_kSysv_abi_cdecl; sym_kVectorcall; sym_kVarargs; sym_kWinapi];
   ACTIONS 8303 [sym_kAlias]; ACTIONS 8278 [sym_kAsm; sym_kBegin; sym_kCase; sym_kClass;
   sym_kConst; sym_kConstructor; sym_kDestructor; sym_kExports; sym_kFor; sym_kFunction;
   sym_kGoto; sym_kIf; sym_kInherited]; ACTIONS 1016 [sym_kInline]; ACTIONS 8278 [sym_kLabel;
   sym_kNil; sym_kNot; sym_kProcedure; sym_kProperty; sym_kRaise; sym_kRepeat;
   sym_kResourcestring; sym_kString; sym_kThreadvar; sym_kTry; sym_kType; sym_kUses; sym_kVar;
   sym_kWhile; sym_kWith]].

(** State 901. *)
Definition ts_parse_table_901 : parse_row :=
  [STATE 5908 [sym_if]; STATE 5935 [sym_ifElse; sym_while; sym_repeat; sym_for; sym_foreach;
   sym_try; sym_case; sym_block; sym_asm; sym_with; sym_raise; sym_statement; sym_goto;
   sym_labeledStatement; sym__statement]; STATE 12967 [sym_ifTr; sym_ifElseTr; sym_whileTr;
   sym_repeatTr; sym_forTr; sym_foreachTr; sym_tryTr; sym_caseTr]; STATE 12758 [sym_blockTr];
   STATE 12967 [sym_asmTr; sym_withTr; sym_raiseTr; sym_statementTr; sym_gotoTr;
   sym_labeledStatementTr; sym__statementTr]; STATE 12111 [sym_assignment];
   STATE 11928 [sym_varAssignDef]; STATE 12111 [sym_varDef; sym_constDef];
   STATE 1010 [sym_label]; STATE 7746 [sym__expr; sym_exprConditional]; STATE 7153 [sym__ref;
   sym_lambda; sym_inherited; sym_exprDot; sym_exprDeref; sym_exprAs; sym_exprTpl;
   sym_exprSubscript; sym_exprCall]; STATE 7746 [sym_exprBinary; sym_exprUnary];
   STATE 7153 [sym_exprParens; sym_exprBrackets; sym__literal; sym_literalString];
   STATE 6416 [sym__literalString; sym_literalChar]; STATE 7153 [sym_literalNumber];
   STATE 7250 [sym__literalInt; sym__literalFloat]; STATE 6416 [aux_sym_literalString_repeat1];
   ACTIONS 8026 [anon_sym_SEMI]; ACTIONS 7422 [anon_sym_LBRACK]; ACTIONS 7424 [anon_sym_LPAREN];
   ACTIONS 7426 [aux_sym__literalString_token1]; ACTIONS 7428 [anon_sym_POUND];
   ACTIONS 7430 [aux_sym__literalInt_token1]; ACTIONS 7432 [aux_sym__literalInt_token2;
   aux_sym__literalInt_token3]; ACTIONS 7430 [aux_sym__literalFloat_token1];
   ACTIONS 7434 [sym_kAdd; sym_kSub]; ACTIONS 7436 [sym_kAt]; ACTIONS 7438 [sym_kTrue;
   sym_kFalse]; ACTIONS 7440 [sym_labelNumber]; ACTIONS 3 [sym__space];
   ACTIONS 5 [sym_ppDirective]; ACTIONS 3 [sym_comment]; ACTIONS 7438 [sym_ppFragmentExpr];
   ACTIONS 7426 [sym__literalStringMultiline]; ACTIONS 7442 [sym_identifier];
   ACTIONS 7444 [sym_kSpecialize]; ACTIONS 7446 [sym_kAsm]; ACTIONS 7448 [sym_kBegin];
   ACTIONS 7450 [sym_kCase]; ACTIONS 7452 [sym_kConst]; ACTIONS 8306 [sym_kElse];
   ACTIONS 3230 [sym_kExcept; sym_kFinally]; ACTIONS 7454 [sym_kFor];
   ACTIONS 7456 [sym_kFunction]; ACTIONS 7458 [sym_kGoto]; ACTIONS 7460 [sym_kIf];
   ACTIONS 7462 [sym_kInherited]; ACTIONS 7438 [sym_kNil]; ACTIONS 7436 [sym_kNot];
   ACTIONS 7456 [sym_kProcedure]; ACTIONS 7464 [sym_kRaise]; ACTIONS 7466 [sym_kRepeat];
   ACTIONS 7468 [sym_kString]; ACTIONS 7470 [sym_kTry]; ACTIONS 7472 [sym_kVar];
   ACTIONS 7474 [sym_kWhile]; ACTIONS 7476 [sym_kWith]].

(** State 902. *)
Definition ts_parse_table_902 : parse_row :=
  [STATE 1266 [sym__procAttribute]; STATE 15237 [sym_procAttribute];
   STATE 912 [aux_sym_declProcFwd_repeat1]; ACTIONS 8308 [anon_sym_SEMI; anon_sym_COMMA];
   ACTIONS 8310 [anon_sym_LBRACK]; ACTIONS 8313 [anon_sym_LPAREN];
   ACTIONS 8308 [aux_sym__literalString_token1; anon_sym_POUND];
   ACTIONS 8313 [aux_sym__literalInt_token1]; ACTIONS 8308 [aux_sym__literalInt_token2;
   aux_sym__literalInt_token3]; ACTIONS 8313 [aux_sym__literalFloat_token1];
   ACTIONS 8308 [aux_sym_ppUsesBlock_token1; aux_sym_ppUsesBlock_token2;
   aux_sym_ppUsesBlock_token3]; ACTIONS 8313 [sym_kAdd; sym_kSub]; ACTIONS 8308 [sym_kAt;
   sym_kTrue; sym_kFalse]; ACTIONS 3 [sym__space]; ACTIONS 5 [sym_ppDirective];
   ACTIONS 3 [sym_comment]; ACTIONS 8308 [sym_ppFragmentExpr; sym__literalStringMultiline;
   sym_identifier]; ACTIONS 8315 [sym_kDefault; sym_kNodefault]; ACTIONS 8318 [sym_kDispId];
   ACTIONS 8308 [sym_kGeneric; sym_kSpecialize; sym_kOperator]; ACTIONS 8321 [sym_kPublic];
   ACTIONS 8315 [sym_kStatic; sym_kVirtual; sym_kAbstract; sym_kDynamic; sym_kOverride;
   sym_kOverload; sym_kReintroduce; sym_kStdcall; sym_kCdecl; sym_kCppdecl; sym_kPascal;
   sym_kRegister; sym_kMwpascal]; ACTIONS 8324 [sym_kMessage]; ACTIONS 8327 [sym_kDeprecated];
   ACTIONS 8315 [sym_kExperimental; sym_kPlatform; sym_kUnimplemented; sym_kCvar];
   ACTIONS 8330 [sym_kExport]; ACTIONS 8315 [sym_kFar; sym_kNear; sym_kSafecall; sym_kAssembler;
   sym_kNostackframe; sym_kInterrupt; sym_kNoreturn; sym_kIocheck; sym_kLocal; sym_kHardfloat;
   sym_kSoftfloat; sym_kMs_abi_default; sym_kMs_abi_cdecl; sym_kSaveregisters;
   sym_kSysv_abi_default; sym_kSysv_abi_cdecl; sym_kVectorcall; sym_kVarargs; sym_kWinapi];
   ACTIONS 8333 [sym_kAlias]; ACTIONS 8308 [sym_kAsm; sym_kBegin; sym_kCase; sym_kClass;
   sym_kConst; sym_kConstructor; sym_kDestructor; sym_kExports; sym_kFor; sym_kFunction;
   sym_kGoto; sym_kIf; sym_kInherited]; ACTIONS 1016 [sym_kInline]; ACTIONS 8308 [sym_kLabel;
   sym_kNil; sym_kNot; sym_kProcedure; sym_kProperty; sym_kRaise; sym_kRepeat;
   sym_kResourcestring; sym_kString; sym_kThreadvar; sym_kTry; sym_kType; sym_kUses; sym_kVar;
   sym_kWhile; sym_kWith]].

(** State 903. *)
Definition ts_parse_table_903 : parse_row :=
  [STATE 1266 [sym__procAttribute]; STATE 15237 [sym_procAttribute];
   STATE 910 [aux_sym_declProcFwd_repeat1]; ACTIONS 8336 [anon_sym_SEMI; anon_sym_COMMA];
   ACTIONS 8338 [anon_sym_LBRACK]; ACTIONS 8341 [anon_sym_LPAREN];
   ACTIONS 8336 [aux_sym__literalString_token1; anon_sym_POUND];
   ACTIONS 8341 [aux_sym__literalInt_token1]; ACTIONS 8336 [aux_sym__literalInt_token2;
   aux_sym__literalInt_token3]; ACTIONS 8341 [aux_sym__literalFloat_token1];
   ACTIONS 8336 [aux_sym_ppUsesBlock_token1; aux_sym_ppUsesBlock_token2;
   aux_sym_ppUsesBlock_token3]; ACTIONS 8341 [sym_kAdd; sym_kSub]; ACTIONS 8336 [sym_kAt;
   sym_kTrue; sym_kFalse]; ACTIONS 3 [sym__space]; ACTIONS 5 [sym_ppDirective];
   ACTIONS 3 [sym_comment]; ACTIONS 8336 [sym_ppFragmentExpr; sym__literalStringMultiline;
   sym_identifier]; ACTIONS 8343 [sym_kDefault; sym_kNodefault]; ACTIONS 8346 [sym_kDispId];
   ACTIONS 8336 [sym_kGeneric; sym_kSpecialize; sym_kOperator]; ACTIONS 8349 [sym_kPublic];
   ACTIONS 8343 [sym_kStatic; sym_kVirtual; sym_kAbstract; sym_kDynamic; sym_kOverride;
   sym_kOverload; sym_kReintroduce; sym_kStdcall; sym_kCdecl; sym_kCppdecl; sym_kPascal;
   sym_kRegister; sym_kMwpascal]; ACTIONS 8352 [sym_kMessage]; ACTIONS 8355 [sym_kDeprecated];
   ACTIONS 8343 [sym_kExperimental; sym_kPlatform; sym_kUnimplemented; sym_kCvar];
   ACTIONS 8358 [sym_kExport]; ACTIONS 8343 [sym_kFar; sym_kNear; sym_kSafecall; sym_kAssembler;
   sym_kNostackframe; sym_kInterrupt; sym_kNoreturn; sym_kIocheck; sym_kLocal; sym_kHardfloat;
   sym_kSoftfloat; sym_kMs_abi_default; sym_kMs_abi_cdecl; sym_kSaveregisters;
   sym_kSysv_abi_default; sym_kSysv_abi_cdecl; sym_kVectorcall; sym_kVarargs; sym_kWinapi];
   ACTIONS 8361 [sym_kAlias]; ACTIONS 8336 [sym_kAsm; sym_kBegin; sym_kCase; sym_kClass;
   sym_kConst; sym_kConstructor; sym_kDestructor; sym_kExports; sym_kFor; sym_kFunction;
   sym_kGoto; sym_kIf; sym_kInherited]; ACTIONS 1016 [sym_kInline]; ACTIONS 8336 [sym_kLabel;
   sym_kNil; sym_kNot; sym_kProcedure; sym_kProperty; sym_kRaise; sym_kRepeat;
   sym_kResourcestring; sym_kString; sym_kThreadvar; sym_kTry; sym_kType; sym_kUses; sym_kVar;
   sym_kWhile; sym_kWith]].

(** State 904. *)
Definition ts_parse_table_904 : parse_row :=
  [STATE 1266 [sym__procAttribute]; STATE 15237 [sym_procAttribute];
   STATE 911 [aux_sym_declProcFwd_repeat1]; ACTIONS 8364 [anon_sym_SEMI; anon_sym_COMMA];
   ACTIONS 8366 [anon_sym_LBRACK]; ACTIONS 8369 [anon_sym_LPAREN];
   ACTIONS 8364 [aux_sym__literalString_token1; anon_sym_POUND];
   ACTIONS 8369 [aux_sym__literalInt_token1]; ACTIONS 8364 [aux_sym__literalInt_token2;
   aux_sym__literalInt_token3]; ACTIONS 8369 [aux_sym__literalFloat_token1];
   ACTIONS 8364 [aux_sym_ppUsesBlock_token1; aux_sym_ppUsesBlock_token2;
   aux_sym_ppUsesBlock_token3]; ACTIONS 8369 [sym_kAdd; sym_kSub]; ACTIONS 8364 [sym_kAt;
   sym_kTrue; sym_kFalse]; ACTIONS 3 [sym__space]; ACTIONS 5 [sym_ppDirective];
   ACTIONS 3 [sym_comment]; ACTIONS 8364 [sym_ppFragmentExpr; sym__literalStringMultiline;
   sym_identifier]; ACTIONS 8371 [sym_kDefault; sym_kNodefault]; ACTIONS 8374 [sym_kDispId];
   ACTIONS 8364 [sym_kGeneric; sym_kSpecialize; sym_kOperator]; ACTIONS 8377 [sym_kPublic];
   ACTIONS 8371 [sym_kStatic; sym_kVirtual; sym_kAbstract; sym_kDynamic; sym_kOverride;
   sym_kOverload; sym_kReintroduce; sym_kStdcall; sym_kCdecl; sym_kCppdecl; sym_kPascal;
   sym_kRegister; sym_kMwpascal]; ACTIONS 8380 [sym_kMessage]; ACTIONS 8383 [sym_kDeprecated];
   ACTIONS 8371 [sym_kExperimental; sym_kPlatform; sym_kUnimplemented; sym_kCvar];
   ACTIONS 8386 [sym_kExport]; ACTIONS 8371 [sym_kFar; sym_kNear; sym_kSafecall; sym_kAssembler;
   sym_kNostackframe; sym_kInterrupt; sym_kNoreturn; sym_kIocheck; sym_kLocal; sym_kHardfloat;
   sym_kSoftfloat; sym_kMs_abi_default; sym_kMs_abi_cdecl; sym_kSaveregisters;
   sym_kSysv_abi_default; sym_kSysv_abi_cdecl; sym_kVectorcall; sym_kVarargs; sym_kWinapi];
   ACTIONS 8389 [sym_kAlias]; ACTIONS 8364 [sym_kAsm; sym_kBegin; sym_kCase; sym_kClass;
   sym_kConst; sym_kConstructor; sym_kDestructor; sym_kExports; sym_kFor; sym_kFunction;
   sym_kGoto; sym_kIf; sym_kInherited]; ACTIONS 1016 [sym_kInline]; ACTIONS 8364 [sym_kLabel;
   sym_kNil; sym_kNot; sym_kProcedure; sym_kProperty; sym_kRaise; sym_kRepeat;
   sym_kResourcestring; sym_kString; sym_kThreadvar; sym_kTry; sym_kType; sym_kUses; sym_kVar;
   sym_kWhile; sym_kWith]].

(** State 905. *)
Definition ts_parse_table_905 : parse_row :=
  [STATE 1266 [sym__procAttribute]; STATE 15237 [sym_procAttribute];
   STATE 912 [aux_sym_declProcFwd_repeat1]; ACTIONS 8392 [anon_sym_SEMI; anon_sym_COMMA];
   ACTIONS 8394 [anon_sym_LBRACK]; ACTIONS 8397 [anon_sym_LPAREN];
   ACTIONS 8392 [aux_sym__literalString_token1; anon_sym_POUND];
   ACTIONS 8397 [aux_sym__literalInt_token1]; ACTIONS 8392 [aux_sym__literalInt_token2;
   aux_sym__literalInt_token3]; ACTIONS 8397 [aux_sym__literalFloat_token1];
   ACTIONS 8392 [aux_sym_ppUsesBlock_token1; aux_sym_ppUsesBlock_token2;
   aux_sym_ppUsesBlock_token3]; ACTIONS 8397 [sym_kAdd; sym_kSub]; ACTIONS 8392 [sym_kAt;
   sym_kTrue; sym_kFalse]; ACTIONS 3 [sym__space]; ACTIONS 5 [sym_ppDirective];
   ACTIONS 3 [sym_comment]; ACTIONS 8392 [sym_ppFragmentExpr; sym__literalStringMultiline;
   sym_identifier]; ACTIONS 8399 [sym_kDefault; sym_kNodefault]; ACTIONS 8402 [sym_kDispId];
   ACTIONS 8392 [sym_kGeneric; sym_kSpecialize; sym_kOperator]; ACTIONS 8405 [sym_kPublic];
   ACTIONS 8399 [sym_kStatic; sym_kVirtual; sym_kAbstract; sym_kDynamic; sym_kOverride;
   sym_kOverload; sym_kReintroduce; sym_kStdcall; sym_kCdecl; sym_kCppdecl; sym_kPascal;
   sym_kRegister; sym_kMwpascal]; ACTIONS 8408 [sym_kMessage]; ACTIONS 8411 [sym_kDeprecated];
   ACTIONS 8399 [sym_kExperimental; sym_kPlatform; sym_kUnimplemented; sym_kCvar];
   ACTIONS 8414 [sym_kExport]; ACTIONS 8399 [sym_kFar; sym_kNear; sym_kSafecall; sym_kAssembler;
   sym_kNostackframe; sym_kInterrupt; sym_kNoreturn; sym_kIocheck; sym_kLocal; sym_kHardfloat;
   sym_kSoftfloat; sym_kMs_abi_default; sym_kMs_abi_cdecl; sym_kSaveregisters;
   sym_kSysv_abi_default; sym_kSysv_abi_cdecl; sym_kVectorcall; sym_kVarargs; sym_kWinapi];
   ACTIONS 8417 [sym_kAlias]; ACTIONS 8392 [sym_kAsm; sym_kBegin; sym_kCase; sym_kClass;
   sym_kConst; sym_kConstructor; sym_kDestructor; sym_kExports; sym_kFor; sym_kFunction;
   sym_kGoto; sym_kIf; sym_kInherited]; ACTIONS 1016 [sym_kInline]; ACTIONS 8392 [sym_kLabel;
   sym_kNil; sym_kNot; sym_kProcedure; sym_kProperty; sym_kRaise; sym_kRepeat;
   sym_kResourcestring; sym_kString; sym_kThreadvar; sym_kTry; sym_kType; sym_kUses; sym_kVar;
   sym_kWhile; sym_kWith]].

(** State 906. *)
Definition ts_parse_table_906 : parse_row :=
  [STATE 1266 [sym__procAttribute]; STATE 15237 [sym_procAttribute];
   STATE 912 [aux_sym_declProcFwd_repeat1]; ACTIONS 8420 [anon_sym_SEMI; anon_sym_COMMA];
   ACTIONS 8422 [anon_sym_LBRACK]; ACTIONS 8425 [anon_sym_LPAREN];
   ACTIONS 8420 [aux_sym__literalString_token1; anon_sym_POUND];
   ACTIONS 8425 [aux_sym__literalInt_token1]; ACTIONS 8420 [aux_sym__literalInt_token2;
   aux_sym__literalInt_token3]; ACTIONS 8425 [aux_sym__literalFloat_token1];
   ACTIONS 8420 [aux_sym_ppUsesBlock_token1; aux_sym_ppUsesBlock_token2;
   aux_sym_ppUsesBlock_token3]; ACTIONS 8425 [sym_kAdd; sym_kSub]; ACTIONS 8420 [sym_kAt;
   sym_kTrue; sym_kFalse]; ACTIONS 3 [sym__space]; ACTIONS 5 [sym_ppDirective];
   ACTIONS 3 [sym_comment]; ACTIONS 8420 [sym_ppFragmentExpr; sym__literalStringMultiline;
   sym_identifier]; ACTIONS 8427 [sym_kDefault; sym_kNodefault]; ACTIONS 8430 [sym_kDispId];
   ACTIONS 8420 [sym_kGeneric; sym_kSpecialize; sym_kOperator]; ACTIONS 8433 [sym_kPublic];
   ACTIONS 8427 [sym_kStatic; sym_kVirtual; sym_kAbstract; sym_kDynamic; sym_kOverride;
   sym_kOverload; sym_kReintroduce; sym_kStdcall; sym_kCdecl; sym_kCppdecl; sym_kPascal;
   sym_kRegister; sym_kMwpascal]; ACTIONS 8436 [sym_kMessage]; ACTIONS 8439 [sym_kDeprecated];
   ACTIONS 8427 [sym_kExperimental; sym_kPlatform; sym_kUnimplemented; sym_kCvar];
   ACTIONS 8442 [sym_kExport]; ACTIONS 8427 [sym_kFar; sym_kNear; sym_kSafecall; sym_kAssembler;
   sym_kNostackframe; sym_kInterrupt; sym_kNoreturn; sym_kIocheck; sym_kLocal; sym_kHardfloat;
   sym_kSoftfloat; sym_kMs_abi_default; sym_kMs_abi_cdecl; sym_kSaveregisters;
   sym_kSysv_abi_default; sym_kSysv_abi_cdecl; sym_kVectorcall; sym_kVarargs; sym_kWinapi];
   ACTIONS 8445 [sym_kAlias]; ACTIONS 8420 [sym_kAsm; sym_kBegin; sym_kCase; sym_kClass;
   sym_kConst; sym_kConstructor; sym_kDestructor; sym_kExports; sym_kFor; sym_kFunction;
   sym_kGoto; sym_kIf; sym_kInherited]; ACTIONS 1016 [sym_kInline]; ACTIONS 8420 [sym_kLabel;
   sym_kNil; sym_kNot; sym_kProcedure; sym_kProperty; sym_kRaise; sym_kRepeat;
   sym_kResourcestring; sym_kString; sym_kThreadvar; sym_kTry; sym_kType; sym_kUses; sym_kVar;
   sym_kWhile; sym_kWith]].

(** State 907. *)
Definition ts_parse_table_907 : parse_row :=
  [STATE 1266 [sym__procAttribute]; STATE 15237 [sym_procAttribute];
   STATE 922 [aux_sym_declProcFwd_repeat1]; ACTIONS 8448 [anon_sym_SEMI; anon_sym_COMMA];
   ACTIONS 8450 [anon_sym_LBRACK]; ACTIONS 8453 [anon_sym_LPAREN];
   ACTIONS 8448 [aux_sym__literalString_token1; anon_sym_POUND];
   ACTIONS 8453 [aux_sym__literalInt_token1]; ACTIONS 8448 [aux_sym__literalInt_token2;
   aux_sym__literalInt_token3]; ACTIONS 8453 [aux_sym__literalFloat_token1];
   ACTIONS 8448 [aux_sym_ppUsesBlock_token1; aux_sym_ppUsesBlock_token2;
   aux_sym_ppUsesBlock_token3]; ACTIONS 8453 [sym_kAdd; sym_kSub]; ACTIONS 8448 [sym_kAt;
   sym_kTrue; sym_kFalse]; ACTIONS 3 [sym__space]; ACTIONS 5 [sym_ppDirective];
   ACTIONS 3 [sym_comment]; ACTIONS 8448 [sym_ppFragmentExpr; sym__literalStringMultiline;
   sym_identifier]; ACTIONS 8455 [sym_kDefault; sym_kNodefault]; ACTIONS 8458 [sym_kDispId];
   ACTIONS 8448 [sym_kGeneric; sym_kSpecialize; sym_kOperator]; ACTIONS 8461 [sym_kPublic];
   ACTIONS 8455 [sym_kStatic; sym_kVirtual; sym_kAbstract; sym_kDynamic; sym_kOverride;
   sym_kOverload; sym_kReintroduce; sym_kStdcall; sym_kCdecl; sym_kCppdecl; sym_kPascal;
   sym_kRegister; sym_kMwpascal]; ACTIONS 8464 [sym_kMessage]; ACTIONS 8467 [sym_kDeprecated];
   ACTIONS 8455 [sym_kExperimental; sym_kPlatform; sym_kUnimplemented; sym_kCvar];
   ACTIONS 8470 [sym_kExport]; ACTIONS 8455 [sym_kFar; sym_kNear; sym_kSafecall; sym_kAssembler;
   sym_kNostackframe; sym_kInterrupt; sym_kNoreturn; sym_kIocheck; sym_kLocal; sym_kHardfloat;
   sym_kSoftfloat; sym_kMs_abi_default; sym_kMs_abi_cdecl; sym_kSaveregisters;
   sym_kSysv_abi_default; sym_kSysv_abi_cdecl; sym_kVectorcall; sym_kVarargs; sym_kWinapi];
   ACTIONS 8473 [sym_kAlias]; ACTIONS 8448 [sym_kAsm; sym_kBegin; sym_kCase; sym_kClass;
   sym_kConst; sym_kConstructor; sym_kDestructor; sym_kExports; sym_kFor; sym_kFunction;
   sym_kGoto; sym_kIf; sym_kInherited]; ACTIONS 1016 [sym_kInline]; ACTIONS 8448 [sym_kLabel;
   sym_kNil; sym_kNot; sym_kProcedure; sym_kProperty; sym_kRaise; sym_kRepeat;
   sym_kResourcestring; sym_kString; sym_kThreadvar; sym_kTry; sym_kType; sym_kUses; sym_kVar;
   sym_kWhile; sym_kWith]].

Definition ts_parse_table_part5 : list parse_row :=
  [
   ts_parse_table_700; ts_parse_table_701; ts_parse_table_702; ts_parse_table_703;
   ts_parse_table_704; ts_parse_table_705; ts_parse_table_706; ts_parse_table_707;
   ts_parse_table_708; ts_parse_table_709; ts_parse_table_710; ts_parse_table_711;
   ts_parse_table_712; ts_parse_table_713; ts_parse_table_714; ts_parse_table_715;
   ts_parse_table_716; ts_parse_table_717; ts_parse_table_718; ts_parse_table_719;
   ts_parse_table_720; ts_parse_table_721; ts_parse_table_722; ts_parse_table_723;
   ts_parse_table_724; ts_parse_table_725; ts_parse_table_726; ts_parse_table_727;
   ts_parse_table_728; ts_parse_table_729; ts_parse_table_730; ts_parse_table_731;
   ts_parse_table_732; ts_parse_table_733; ts_parse_table_734; ts_parse_table_735;
   ts_parse_table_736; ts_parse_table_737; ts_parse_table_738; ts_parse_table_739;
   ts_parse_table_740; ts_parse_table_741; ts_parse_table_742; ts_parse_table_743;
   ts_parse_table_744; ts_parse_table_745; ts_parse_table_746; ts_parse_table_747;
   ts_parse_table_748; ts_parse_table_749; ts_parse_table_750; ts_parse_table_751;
   ts_parse_table_752; ts_parse_table_753; ts_parse_table_754; ts_parse_table_755;
   ts_parse_table_756; ts_parse_table_757; ts_parse_table_758; ts_parse_table_759;
   ts_parse_table_760; ts_parse_table_761; ts_parse_table_762; ts_parse_table_763;
   ts_parse_table_764; ts_parse_table_765; ts_parse_table_766; ts_parse_table_767;
   ts_parse_table_768; ts_parse_table_769; ts_parse_table_770; ts_parse_table_771;
   ts_parse_table_772; ts_parse_table_773; ts_parse_table_774; ts_parse_table_775;
   ts_parse_table_776; ts_parse_table_777; ts_parse_table_778; ts_parse_table_779;
   ts_parse_table_780; ts_parse_table_781; ts_parse_table_782; ts_parse_table_783;
   ts_parse_table_784; ts_parse_table_785; ts_parse_table_786; ts_parse_table_787;
   ts_parse_table_788; ts_parse_table_789; ts_parse_table_790; ts_parse_table_791;
   ts_parse_table_792; ts_parse_table_793; ts_parse_table_794; ts_parse_table_795;
   ts_parse_table_796; ts_parse_table_797; ts_parse_table_798; ts_parse_table_799;
   ts_parse_table_800; ts_parse_table_801; ts_parse_table_802; ts_parse_table_803;
   ts_parse_table_804; ts_parse_table_805; ts_parse_table_806; ts_parse_table_807;
   ts_parse_table_808; ts_parse_table_809; ts_parse_table_810; ts_parse_table_811;
   ts_parse_table_812; ts_parse_table_813; ts_parse_table_814; ts_parse_table_815;
   ts_parse_table_816; ts_parse_table_817; ts_parse_table_818; ts_parse_table_819;
   ts_parse_table_820; ts_parse_table_821; ts_parse_table_822; ts_parse_table_823;
   ts_parse_table_824; ts_parse_table_825; ts_parse_table_826; ts_parse_table_827;
   ts_parse_table_828; ts_parse_table_829; ts_parse_table_830; ts_parse_table_831;
   ts_parse_table_832; ts_parse_table_833; ts_parse_table_834; ts_parse_table_835;
   ts_parse_table_836; ts_parse_table_837; ts_parse_table_838; ts_parse_table_839;
   ts_parse_table_840; ts_parse_table_841; ts_parse_table_842; ts_parse_table_843;
   ts_parse_table_844; ts_parse_table_845; ts_parse_table_846; ts_parse_table_847;
   ts_parse_table_848; ts_parse_table_849; ts_parse_table_850; ts_parse_table_851;
   ts_parse_table_852; ts_parse_table_853; ts_parse_table_854; ts_parse_table_855;
   ts_parse_table_856; ts_parse_table_857; ts_parse_table_858; ts_parse_table_859;
   ts_parse_table_860; ts_parse_table_861; ts_parse_table_862; ts_parse_table_863;
   ts_parse_table_864; ts_parse_table_865; ts_parse_table_866; ts_parse_table_867;
   ts_parse_table_868; ts_parse_table_869; ts_parse_table_870; ts_parse_table_871;
   ts_parse_table_872; ts_parse_table_873; ts_parse_table_874; ts_parse_table_875;
   ts_parse_table_876; ts_parse_table_877; ts_parse_table_878; ts_parse_table_879;
   ts_parse_table_880; ts_parse_table_881; ts_parse_table_882; ts_parse_table_883;
   ts_parse_table_884; ts_parse_table_885; ts_parse_table_886; ts_parse_table_887;
   ts_parse_table_888; ts_parse_table_889; ts_parse_table_890; ts_parse_table_891;
   ts_parse_table_892; ts_parse_table_893; ts_parse_table_894; ts_parse_table_895;
   ts_parse_table_896; ts_parse_table_897; ts_parse_table_898; ts_parse_table_899;
   ts_parse_table_900; ts_parse_table_901; ts_parse_table_902; ts_parse_table_903;
   ts_parse_table_904; ts_parse_table_905; ts_parse_table_906; ts_parse_table_907
  ].
