(* ===== verification/ParseTable6.v ===== *)
(** * The parse table of [parser.c], states 908 to 1108

    One definition for each row of [ts_parse_table], with the initializers of
    the row in the order of the source; consecutive initializers of the same
    value are one group. *)

From S2P Require Import Prelude.
From S2P Require Import Symbols.
From S2P Require Import ParseTypes.

(** State 908. *)
Definition ts_parse_table_908 : parse_row :=
  [STATE 1266 [sym__procAttribute]; STATE 15237 [sym_procAttribute];
   STATE 912 [aux_sym_declProcFwd_repeat1]; ACTIONS 8476 [anon_sym_SEMI; anon_sym_COMMA];
   ACTIONS 8478 [anon_sym_LBRACK]; ACTIONS 8481 [anon_sym_LPAREN];
   ACTIONS 8476 [aux_sym__literalString_token1; anon_sym_POUND];
   ACTIONS 8481 [aux_sym__literalInt_token1]; ACTIONS 8476 [aux_sym__literalInt_token2;
   aux_sym__literalInt_token3]; ACTIONS 8481 [aux_sym__literalFloat_token1];
   ACTIONS 8476 [aux_sym_ppUsesBlock_token1; aux_sym_ppUsesBlock_token2;
   aux_sym_ppUsesBlock_token3]; ACTIONS 8481 [sym_kAdd; sym_kSub]; ACTIONS 8476 [sym_kAt;
   sym_kTrue; sym_kFalse]; ACTIONS 3 [sym__space]; ACTIONS 5 [sym_ppDirective];
   ACTIONS 3 [sym_comment]; ACTIONS 8476 [sym_ppFragmentExpr; sym__literalStringMultiline;
   sym_identifier]; ACTIONS 8483 [sym_kDefault; sym_kNodefault]; ACTIONS 8486 [sym_kDispId];
   ACTIONS 8476 [sym_kGeneric; sym_kSpecialize; sym_kOperator]; ACTIONS 8489 [sym_kPublic];
   ACTIONS 8483 [sym_kStatic; sym_kVirtual; sym_kAbstract; sym_kDynamic; sym_kOverride;
   sym_kOverload; sym_kReintroduce; sym_kStdcall; sym_kCdecl; sym_kCppdecl; sym_kPascal;
   sym_kRegister; sym_kMwpascal]; ACTIONS 8492 [sym_kMessage]; ACTIONS 8495 [sym_kDeprecated];
   ACTIONS 8483 [sym_kExperimental; sym_kPlatform; sym_kUnimplemented; sym_kCvar];
   ACTIONS 8498 [sym_kExport]; ACTIONS 8483 [sym_kFar; sym_kNear; sym_kSafecall; sym_kAssembler;
   sym_kNostackframe; sym_kInterrupt; sym_kNoreturn; sym_kIocheck; sym_kLocal; sym_kHardfloat;
   sym_kSoftfloat; sym_kMs_abi_default; sym_kMs_abi_cdecl; sym_kSaveregisters;
   sym_kSysv_abi_default; sym_kSysv_abi_cdecl; sym_kVectorcall; sym_kVarargs; sym_kWinapi];
   ACTIONS 8501 [sym_kAlias]; ACTIONS 8476 [sym_kAsm; sym_kBegin; sym_kCase; sym_kClass;
   sym_kConst; sym_kConstructor; sym_kDestructor; sym_kExports; sym_kFor; sym_kFunction;
   sym_kGoto; sym_kIf; sym_kInherited]; ACTIONS 1016 [sym_kInline]; ACTIONS 8476 [sym_kLabel;
   sym_kNil; sym_kNot; sym_kProcedure; sym_kProperty; sym_kRaise; sym_kRepeat;
   sym_kResourcestring; sym_kString; sym_kThreadvar; sym_kTry; sym_kType; sym_kUses; sym_kVar;
   sym_kWhile; sym_kWith]].

(** State 909. *)
Definition ts_parse_table_909 : parse_row :=
  [STATE 1266 [sym__procAttribute]; STATE 15237 [sym_procAttribute];
   STATE 918 [aux_sym_declProcFwd_repeat1]; ACTIONS 8504 [anon_sym_SEMI; anon_sym_COMMA];
   ACTIONS 8506 [anon_sym_LBRACK]; ACTIONS 8509 [anon_sym_LPAREN];
   ACTIONS 8504 [aux_sym__literalString_token1; anon_sym_POUND];
   ACTIONS 8509 [aux_sym__literalInt_token1]; ACTIONS 8504 [aux_sym__literalInt_token2;
   aux_sym__literalInt_token3]; ACTIONS 8509 [aux_sym__literalFloat_token1];
   ACTIONS 8504 [aux_sym_ppUsesBlock_token1; aux_sym_ppUsesBlock_token2;
   aux_sym_ppUsesBlock_token3]; ACTIONS 8509 [sym_kAdd; sym_kSub]; ACTIONS 8504 [sym_kAt;
   sym_kTrue; sym_kFalse]; ACTIONS 3 [sym__space]; ACTIONS 5 [sym_ppDirective];
   ACTIONS 3 [sym_comment]; ACTIONS 8504 [sym_ppFragmentExpr; sym__literalStringMultiline;
   sym_identifier]; ACTIONS 8511 [sym_kDefault; sym_kNodefault]; ACTIONS 8514 [sym_kDispId];
   ACTIONS 8504 [sym_kGeneric; sym_kSpecialize; sym_kOperator]; ACTIONS 8517 [sym_kPublic];
   ACTIONS 8511 [sym_kStatic; sym_kVirtual; sym_kAbstract; sym_kDynamic; sym_kOverride;
   sym_kOverload; sym_kReintroduce; sym_kStdcall; sym_kCdecl; sym_kCppdecl; sym_kPascal;
   sym_kRegister; sym_kMwpascal]; ACTIONS 8520 [sym_kMessage]; ACTIONS 8523 [sym_kDeprecated];
   ACTIONS 8511 [sym_kExperimental; sym_kPlatform; sym_kUnimplemented; sym_kCvar];
   ACTIONS 8526 [sym_kExport]; ACTIONS 8511 [sym_kFar; sym_kNear; sym_kSafecall; sym_kAssembler;
   sym_kNostackframe; sym_kInterrupt; sym_kNoreturn; sym_kIocheck; sym_kLocal; sym_kHardfloat;
   sym_kSoftfloat; sym_kMs_abi_default; sym_kMs_abi_cdecl; sym_kSaveregisters;
   sym_kSysv_abi_default; sym_kSysv_abi_cdecl; sym_kVectorcall; sym_kVarargs; sym_kWinapi];
   ACTIONS 8529 [sym_kAlias]; ACTIONS 8504 [sym_kAsm; sym_kBegin; sym_kCase; sym_kClass;
   sym_kConst; sym_kConstructor; sym_kDestructor; sym_kExports; sym_kFor; sym_kFunction;
   sym_kGoto; sym_kIf; sym_kInherited]; ACTIONS 1016 [sym_kInline]; ACTIONS 8504 [sym_kLabel;
   sym_kNil; sym_kNot; sym_kProcedure; sym_kProperty; sym_kRaise; sym_kRepeat;
   sym_kResourcestring; sym_kString; sym_kThreadvar; sym_kTry; sym_kType; sym_kUses; sym_kVar;
   sym_kWhile; sym_kWith]].

(** State 910. *)
Definition ts_parse_table_910 : parse_row :=
  [STATE 1266 [sym__procAttribute]; STATE 15237 [sym_procAttribute];
   STATE 912 [aux_sym_declProcFwd_repeat1]; ACTIONS 8532 [anon_sym_SEMI; anon_sym_COMMA];
   ACTIONS 8534 [anon_sym_LBRACK]; ACTIONS 8537 [anon_sym_LPAREN];
   ACTIONS 8532 [aux_sym__literalString_token1; anon_sym_POUND];
   ACTIONS 8537 [aux_sym__literalInt_token1]; ACTIONS 8532 [aux_sym__literalInt_token2;
   aux_sym__literalInt_token3]; ACTIONS 8537 [aux_sym__literalFloat_token1];
   ACTIONS 8532 [aux_sym_ppUsesBlock_token1; aux_sym_ppUsesBlock_token2;
   aux_sym_ppUsesBlock_token3]; ACTIONS 8537 [sym_kAdd; sym_kSub]; ACTIONS 8532 [sym_kAt;
   sym_kTrue; sym_kFalse]; ACTIONS 3 [sym__space]; ACTIONS 5 [sym_ppDirective];
   ACTIONS 3 [sym_comment]; ACTIONS 8532 [sym_ppFragmentExpr; sym__literalStringMultiline;
   sym_identifier]; ACTIONS 8539 [sym_kDefault; sym_kNodefault]; ACTIONS 8542 [sym_kDispId];
   ACTIONS 8532 [sym_kGeneric; sym_kSpecialize; sym_kOperator]; ACTIONS 8545 [sym_kPublic];
   ACTIONS 8539 [sym_kStatic; sym_kVirtual; sym_kAbstract; sym_kDynamic; sym_kOverride;
   sym_kOverload; sym_kReintroduce; sym_kStdcall; sym_kCdecl; sym_kCppdecl; sym_kPascal;
   sym_kRegister; sym_kMwpascal]; ACTIONS 8548 [sym_kMessage]; ACTIONS 8551 [sym_kDeprecated];
   ACTIONS 8539 [sym_kExperimental; sym_kPlatform; sym_kUnimplemented; sym_kCvar];
   ACTIONS 8554 [sym_kExport]; ACTIONS 8539 [sym_kFar; sym_kNear; sym_kSafecall; sym_kAssembler;
   sym_kNostackframe; sym_kInterrupt; sym_kNoreturn; sym_kIocheck; sym_kLocal; sym_kHardfloat;
   sym_kSoftfloat; sym_kMs_abi_default; sym_kMs_abi_cdecl; sym_kSaveregisters;
   sym_kSysv_abi_default; sym_kSysv_abi_cdecl; sym_kVectorcall; sym_kVarargs; sym_kWinapi];
   ACTIONS 8557 [sym_kAlias]; ACTIONS 8532 [sym_kAsm; sym_kBegin; sym_kCase; sym_kClass;
   sym_kConst; sym_kConstructor; sym_kDestructor; sym_kExports; sym_kFor; sym_kFunction;
   sym_kGoto; sym_kIf; sym_kInherited]; ACTIONS 1016 [sym_kInline]; ACTIONS 8532 [sym_kLabel;
   sym_kNil; sym_kNot; sym_kProcedure; sym_kProperty; sym_kRaise; sym_kRepeat;
   sym_kResourcestring; sym_kString; sym_kThreadvar; sym_kTry; sym_kType; sym_kUses; sym_kVar;
   sym_kWhile; sym_kWith]].

(** State 911. *)
Definition ts_parse_table_911 : parse_row :=
  [STATE 1266 [sym__procAttribute]; STATE 15237 [sym_procAttribute];
   STATE 912 [aux_sym_declProcFwd_repeat1]; ACTIONS 8560 [anon_sym_SEMI; anon_sym_COMMA];
   ACTIONS 8562 [anon_sym_LBRACK]; ACTIONS 8565 [anon_sym_LPAREN];
   ACTIONS 8560 [aux_sym__literalString_token1; anon_sym_POUND];
   ACTIONS 8565 [aux_sym__literalInt_token1]; ACTIONS 8560 [aux_sym__literalInt_token2;
   aux_sym__literalInt_token3]; ACTIONS 8565 [aux_sym__literalFloat_token1];
   ACTIONS 8560 [aux_sym_ppUsesBlock_token1; aux_sym_ppUsesBlock_token2;
   aux_sym_ppUsesBlock_token3]; ACTIONS 8565 [sym_kAdd; sym_kSub]; ACTIONS 8560 [sym_kAt;
   sym_kTrue; sym_kFalse]; ACTIONS 3 [sym__space]; ACTIONS 5 [sym_ppDirective];
   ACTIONS 3 [sym_comment]; ACTIONS 8560 [sym_ppFragmentExpr; sym__literalStringMultiline;
   sym_identifier]; ACTIONS 8567 [sym_kDefault; sym_kNodefault]; ACTIONS 8570 [sym_kDispId];
   ACTIONS 8560 [sym_kGeneric; sym_kSpecialize; sym_kOperator]; ACTIONS 8573 [sym_kPublic];
   ACTIONS 8567 [sym_kStatic; sym_kVirtual; sym_kAbstract; sym_kDynamic; sym_kOverride;
   sym_kOverload; sym_kReintroduce; sym_kStdcall; sym_kCdecl; sym_kCppdecl; sym_kPascal;
   sym_kRegister; sym_kMwpascal]; ACTIONS 8576 [sym_kMessage]; ACTIONS 8579 [sym_kDeprecated];
   ACTIONS 8567 [sym_kExperimental; sym_kPlatform; sym_kUnimplemented; sym_kCvar];
   ACTIONS 8582 [sym_kExport]; ACTIONS 8567 [sym_kFar; sym_kNear; sym_kSafecall; sym_kAssembler;
   sym_kNostackframe; sym_kInterrupt; sym_kNoreturn; sym_kIocheck; sym_kLocal; sym_kHardfloat;
   sym_kSoftfloat; sym_kMs_abi_default; sym_kMs_abi_cdecl; sym_kSaveregisters;
   sym_kSysv_abi_default; sym_kSysv_abi_cdecl; sym_kVectorcall; sym_kVarargs; sym_kWinapi];
   ACTIONS 8585 [sym_kAlias]; ACTIONS 8560 [sym_kAsm; sym_kBegin; sym_kCase; sym_kClass;
   sym_kConst; sym_kConstructor; sym_kDestructor; sym_kExports; sym_kFor; sym_kFunction;
   sym_kGoto; sym_kIf; sym_kInherited]; ACTIONS 1016 [sym_kInline]; ACTIONS 8560 [sym_kLabel;
   sym_kNil; sym_kNot; sym_kProcedure; sym_kProperty; sym_kRaise; sym_kRepeat;
   sym_kResourcestring; sym_kString; sym_kThreadvar; sym_kTry; sym_kType; sym_kUses; sym_kVar;
   sym_kWhile; sym_kWith]].

(** State 912. *)
Definition ts_parse_table_912 : parse_row :=
  [STATE 1266 [sym__procAttribute]; STATE 15237 [sym_procAttribute];
   STATE 912 [aux_sym_declProcFwd_repeat1]; ACTIONS 8588 [anon_sym_SEMI; anon_sym_COMMA];
   ACTIONS 8590 [anon_sym_LBRACK]; ACTIONS 8593 [anon_sym_LPAREN];
   ACTIONS 8588 [aux_sym__literalString_token1; anon_sym_POUND];
   ACTIONS 8593 [aux_sym__literalInt_token1]; ACTIONS 8588 [aux_sym__literalInt_token2;
   aux_sym__literalInt_token3]; ACTIONS 8593 [aux_sym__literalFloat_token1];
   ACTIONS 8588 [aux_sym_ppUsesBlock_token1; aux_sym_ppUsesBlock_token2;
   aux_sym_ppUsesBlock_token3]; ACTIONS 8593 [sym_kAdd; sym_kSub]; ACTIONS 8588 [sym_kAt;
   sym_kTrue; sym_kFalse]; ACTIONS 3 [sym__space]; ACTIONS 5 [sym_ppDirective];
   ACTIONS 3 [sym_comment]; ACTIONS 8588 [sym_ppFragmentExpr; sym__literalStringMultiline;
   sym_identifier]; ACTIONS 8595 [sym_kDefault; sym_kNodefault]; ACTIONS 8598 [sym_kDispId];
   ACTIONS 8588 [sym_kGeneric; sym_kSpecialize; sym_kOperator]; ACTIONS 8601 [sym_kPublic];
   ACTIONS 8595 [sym_kStatic; sym_kVirtual; sym_kAbstract; sym_kDynamic; sym_kOverride;
   sym_kOverload; sym_kReintroduce; sym_kStdcall; sym_kCdecl; sym_kCppdecl; sym_kPascal;
   sym_kRegister; sym_kMwpascal]; ACTIONS 8604 [sym_kMessage]; ACTIONS 8607 [sym_kDeprecated];
   ACTIONS 8595 [sym_kExperimental; sym_kPlatform; sym_kUnimplemented; sym_kCvar];
   ACTIONS 8610 [sym_kExport]; ACTIONS 8595 [sym_kFar; sym_kNear; sym_kSafecall; sym_kAssembler;
   sym_kNostackframe; sym_kInterrupt; sym_kNoreturn; sym_kIocheck; sym_kLocal; sym_kHardfloat;
   sym_kSoftfloat; sym_kMs_abi_default; sym_kMs_abi_cdecl; sym_kSaveregisters;
   sym_kSysv_abi_default; sym_kSysv_abi_cdecl; sym_kVectorcall; sym_kVarargs; sym_kWinapi];
   ACTIONS 8613 [sym_kAlias]; ACTIONS 8588 [sym_kAsm; sym_kBegin; sym_kCase; sym_kClass;
   sym_kConst; sym_kConstructor; sym_kDestructor; sym_kExports; sym_kFor; sym_kFunction;
   sym_kGoto; sym_kIf; sym_kInherited]; ACTIONS 8595 [sym_kInline]; ACTIONS 8588 [sym_kLabel;
   sym_kNil; sym_kNot; sym_kProcedure; sym_kProperty; sym_kRaise; sym_kRepeat;
   sym_kResourcestring; sym_kString; sym_kThreadvar; sym_kTry; sym_kType; sym_kUses; sym_kVar;
   sym_kWhile; sym_kWith]].

(** State 913. *)
Definition ts_parse_table_913 : parse_row :=
  [STATE 1266 [sym__procAttribute]; STATE 15237 [sym_procAttribute];
   STATE 912 [aux_sym_declProcFwd_repeat1]; ACTIONS 8616 [anon_sym_SEMI; anon_sym_COMMA];
   ACTIONS 8618 [anon_sym_LBRACK]; ACTIONS 8621 [anon_sym_LPAREN];
   ACTIONS 8616 [aux_sym__literalString_token1; anon_sym_POUND];
   ACTIONS 8621 [aux_sym__literalInt_token1]; ACTIONS 8616 [aux_sym__literalInt_token2;
   aux_sym__literalInt_token3]; ACTIONS 8621 [aux_sym__literalFloat_token1];
   ACTIONS 8616 [aux_sym_ppUsesBlock_token1; aux_sym_ppUsesBlock_token2;
   aux_sym_ppUsesBlock_token3]; ACTIONS 8621 [sym_kAdd; sym_kSub]; ACTIONS 8616 [sym_kAt;
   sym_kTrue; sym_kFalse]; ACTIONS 3 [sym__space]; ACTIONS 5 [sym_ppDirective];
   ACTIONS 3 [sym_comment]; ACTIONS 8616 [sym_ppFragmentExpr; sym__literalStringMultiline;
   sym_identifier]; ACTIONS 8623 [sym_kDefault; sym_kNodefault]; ACTIONS 8626 [sym_kDispId];
   ACTIONS 8616 [sym_kGeneric; sym_kSpecialize; sym_kOperator]; ACTIONS 8629 [sym_kPublic];
   ACTIONS 8623 [sym_kStatic; sym_kVirtual; sym_kAbstract; sym_kDynamic; sym_kOverride;
   sym_kOverload; sym_kReintroduce; sym_kStdcall; sym_kCdecl; sym_kCppdecl; sym_kPascal;
   sym_kRegister; sym_kMwpascal]; ACTIONS 8632 [sym_kMessage]; ACTIONS 8635 [sym_kDeprecated];
   ACTIONS 8623 [sym_kExperimental; sym_kPlatform; sym_kUnimplemented; sym_kCvar];
   ACTIONS 8638 [sym_kExport]; ACTIONS 8623 [sym_kFar; sym_kNear; sym_kSafecall; sym_kAssembler;
   sym_kNostackframe; sym_kInterrupt; sym_kNoreturn; sym_kIocheck; sym_kLocal; sym_kHardfloat;
   sym_kSoftfloat; sym_kMs_abi_default; sym_kMs_abi_cdecl; sym_kSaveregisters;
   sym_kSysv_abi_default; sym_kSysv_abi_cdecl; sym_kVectorcall; sym_kVarargs; sym_kWinapi];
   ACTIONS 8641 [sym_kAlias]; ACTIONS 8616 [sym_kAsm; sym_kBegin; sym_kCase; sym_kClass;
   sym_kConst; sym_kConstructor; sym_kDestructor; sym_kExports; sym_kFor; sym_kFunction;
   sym_kGoto; sym_kIf; sym_kInherited]; ACTIONS 1016 [sym_kInline]; ACTIONS 8616 [sym_kLabel;
   sym_kNil; sym_kNot; sym_kProcedure; sym_kProperty; sym_kRaise; sym_kRepeat;
   sym_kResourcestring; sym_kString; sym_kThreadvar; sym_kTry; sym_kType; sym_kUses; sym_kVar;
   sym_kWhile; sym_kWith]].

(** State 914. *)
Definition ts_parse_table_914 : parse_row :=
  [STATE 1266 [sym__procAttribute]; STATE 15237 [sym_procAttribute];
   STATE 928 [aux_sym_declProcFwd_repeat1]; ACTIONS 8644 [anon_sym_SEMI; anon_sym_COMMA];
   ACTIONS 8646 [anon_sym_LBRACK]; ACTIONS 8649 [anon_sym_LPAREN];
   ACTIONS 8644 [aux_sym__literalString_token1; anon_sym_POUND];
   ACTIONS 8649 [aux_sym__literalInt_token1]; ACTIONS 8644 [aux_sym__literalInt_token2;
   aux_sym__literalInt_token3]; ACTIONS 8649 [aux_sym__literalFloat_token1];
   ACTIONS 8644 [aux_sym_ppUsesBlock_token1; aux_sym_ppUsesBlock_token2;
   aux_sym_ppUsesBlock_token3]; ACTIONS 8649 [sym_kAdd; sym_kSub]; ACTIONS 8644 [sym_kAt;
   sym_kTrue; sym_kFalse]; ACTIONS 3 [sym__space]; ACTIONS 5 [sym_ppDirective];
   ACTIONS 3 [sym_comment]; ACTIONS 8644 [sym_ppFragmentExpr; sym__literalStringMultiline;
   sym_identifier]; ACTIONS 8651 [sym_kDefault; sym_kNodefault]; ACTIONS 8654 [sym_kDispId];
   ACTIONS 8644 [sym_kGeneric; sym_kSpecialize; sym_kOperator]; ACTIONS 8657 [sym_kPublic];
   ACTIONS 8651 [sym_kStatic; sym_kVirtual; sym_kAbstract; sym_kDynamic; sym_kOverride;
   sym_kOverload; sym_kReintroduce; sym_kStdcall; sym_kCdecl; sym_kCppdecl; sym_kPascal;
   sym_kRegister; sym_kMwpascal]; ACTIONS 8660 [sym_kMessage]; ACTIONS 8663 [sym_kDeprecated];
   ACTIONS 8651 [sym_kExperimental; sym_kPlatform; sym_kUnimplemented; sym_kCvar];
   ACTIONS 8666 [sym_kExport]; ACTIONS 8651 [sym_kFar; sym_kNear; sym_kSafecall; sym_kAssembler;
   sym_kNostackframe; sym_kInterrupt; sym_kNoreturn; sym_kIocheck; sym_kLocal; sym_kHardfloat;
   sym_kSoftfloat; sym_kMs_abi_default; sym_kMs_abi_cdecl; sym_kSaveregisters;
   sym_kSysv_abi_default; sym_kSysv_abi_cdecl; sym_kVectorcall; sym_kVarargs; sym_kWinapi];
   ACTIONS 8669 [sym_kAlias]; ACTIONS 8644 [sym_kAsm; sym_kBegin; sym_kCase; sym_kClass;
   sym_kConst; sym_kConstructor; sym_kDestructor; sym_kExports; sym_kFor; sym_kFunction;
   sym_kGoto; sym_kIf; sym_kInherited]; ACTIONS 1016 [sym_kInline]; ACTIONS 8644 [sym_kLabel;
   sym_kNil; sym_kNot; sym_kProcedure; sym_kProperty; sym_kRaise; sym_kRepeat;
   sym_kResourcestring; sym_kString; sym_kThreadvar; sym_kTry; sym_kType; sym_kUses; sym_kVar;
   sym_kWhile; sym_kWith]].

(** State 915. *)
Definition ts_parse_table_915 : parse_row :=
  [STATE 1266 [sym__procAttribute]; STATE 15237 [sym_procAttribute];
   STATE 930 [aux_sym_declProcFwd_repeat1]; ACTIONS 8672 [anon_sym_SEMI; anon_sym_COMMA];
   ACTIONS 8674 [anon_sym_LBRACK]; ACTIONS 8677 [anon_sym_LPAREN];
   ACTIONS 8672 [aux_sym__literalString_token1; anon_sym_POUND];
   ACTIONS 8677 [aux_sym__literalInt_token1]; ACTIONS 8672 [aux_sym__literalInt_token2;
   aux_sym__literalInt_token3]; ACTIONS 8677 [aux_sym__literalFloat_token1];
   ACTIONS 8672 [aux_sym_ppUsesBlock_token1; aux_sym_ppUsesBlock_token2;
   aux_sym_ppUsesBlock_token3]; ACTIONS 8677 [sym_kAdd; sym_kSub]; ACTIONS 8672 [sym_kAt;
   sym_kTrue; sym_kFalse]; ACTIONS 3 [sym__space]; ACTIONS 5 [sym_ppDirective];
   ACTIONS 3 [sym_comment]; ACTIONS 8672 [sym_ppFragmentExpr; sym__literalStringMultiline;
   sym_identifier]; ACTIONS 8679 [sym_kDefault; sym_kNodefault]; ACTIONS 8682 [sym_kDispId];
   ACTIONS 8672 [sym_kGeneric; sym_kSpecialize; sym_kOperator]; ACTIONS 8685 [sym_kPublic];
   ACTIONS 8679 [sym_kStatic; sym_kVirtual; sym_kAbstract; sym_kDynamic; sym_kOverride;
   sym_kOverload; sym_kReintroduce; sym_kStdcall; sym_kCdecl; sym_kCppdecl; sym_kPascal;
   sym_kRegister; sym_kMwpascal]; ACTIONS 8688 [sym_kMessage]; ACTIONS 8691 [sym_kDeprecated];
   ACTIONS 8679 [sym_kExperimental; sym_kPlatform; sym_kUnimplemented; sym_kCvar];
   ACTIONS 8694 [sym_kExport]; ACTIONS 8679 [sym_kFar; sym_kNear; sym_kSafecall; sym_kAssembler;
   sym_kNostackframe; sym_kInterrupt; sym_kNoreturn; sym_kIocheck; sym_kLocal; sym_kHardfloat;
   sym_kSoftfloat; sym_kMs_abi_default; sym_kMs_abi_cdecl; sym_kSaveregisters;
   sym_kSysv_abi_default; sym_kSysv_abi_cdecl; sym_kVectorcall; sym_kVarargs; sym_kWinapi];
   ACTIONS 8697 [sym_kAlias]; ACTIONS 8672 [sym_kAsm; sym_kBegin; sym_kCase; sym_kClass;
   sym_kConst; sym_kConstructor; sym_kDestructor; sym_kExports; sym_kFor; sym_kFunction;
   sym_kGoto; sym_kIf; sym_kInherited]; ACTIONS 1016 [sym_kInline]; ACTIONS 8672 [sym_kLabel;
   sym_kNil; sym_kNot; sym_kProcedure; sym_kProperty; sym_kRaise; sym_kRepeat;
   sym_kResourcestring; sym_kString; sym_kThreadvar; sym_kTry; sym_kType; sym_kUses; sym_kVar;
   sym_kWhile; sym_kWith]].

(** State 916. *)
Definition ts_parse_table_916 : parse_row :=
  [STATE 1266 [sym__procAttribute]; STATE 15237 [sym_procAttribute];
   STATE 879 [aux_sym_declProcFwd_repeat1]; ACTIONS 8700 [anon_sym_SEMI; anon_sym_COMMA];
   ACTIONS 8702 [anon_sym_LBRACK]; ACTIONS 8705 [anon_sym_LPAREN];
   ACTIONS 8700 [aux_sym__literalString_token1; anon_sym_POUND];
   ACTIONS 8705 [aux_sym__literalInt_token1]; ACTIONS 8700 [aux_sym__literalInt_token2;
   aux_sym__literalInt_token3]; ACTIONS 8705 [aux_sym__literalFloat_token1];
   ACTIONS 8700 [aux_sym_ppUsesBlock_token1; aux_sym_ppUsesBlock_token2;
   aux_sym_ppUsesBlock_token3]; ACTIONS 8705 [sym_kAdd; sym_kSub]; ACTIONS 8700 [sym_kAt;
   sym_kTrue; sym_kFalse]; ACTIONS 3 [sym__space]; ACTIONS 5 [sym_ppDirective];
   ACTIONS 3 [sym_comment]; ACTIONS 8700 [sym_ppFragmentExpr; sym__literalStringMultiline;
   sym_identifier]; ACTIONS 8707 [sym_kDefault; sym_kNodefault]; ACTIONS 8710 [sym_kDispId];
   ACTIONS 8700 [sym_kGeneric; sym_kSpecialize; sym_kOperator]; ACTIONS 8713 [sym_kPublic];
   ACTIONS 8707 [sym_kStatic; sym_kVirtual; sym_kAbstract; sym_kDynamic; sym_kOverride;
   sym_kOverload; sym_kReintroduce; sym_kStdcall; sym_kCdecl; sym_kCppdecl; sym_kPascal;
   sym_kRegister; sym_kMwpascal]; ACTIONS 8716 [sym_kMessage]; ACTIONS 8719 [sym_kDeprecated];
   ACTIONS 8707 [sym_kExperimental; sym_kPlatform; sym_kUnimplemented; sym_kCvar];
   ACTIONS 8722 [sym_kExport]; ACTIONS 8707 [sym_kFar; sym_kNear; sym_kSafecall; sym_kAssembler;
   sym_kNostackframe; sym_kInterrupt; sym_kNoreturn; sym_kIocheck; sym_kLocal; sym_kHardfloat;
   sym_kSoftfloat; sym_kMs_abi_default; sym_kMs_abi_cdecl; sym_kSaveregisters;
   sym_kSysv_abi_default; sym_kSysv_abi_cdecl; sym_kVectorcall; sym_kVarargs; sym_kWinapi];
   ACTIONS 8725 [sym_kAlias]; ACTIONS 8700 [sym_kAsm; sym_kBegin; sym_kCase; sym_kClass;
   sym_kConst; sym_kConstructor; sym_kDestructor; sym_kExports; sym_kFor; sym_kFunction;
   sym_kGoto; sym_kIf; sym_kInherited]; ACTIONS 1016 [sym_kInline]; ACTIONS 8700 [sym_kLabel;
   sym_kNil; sym_kNot; sym_kProcedure; sym_kProperty; sym_kRaise; sym_kRepeat;
   sym_kResourcestring; sym_kString; sym_kThreadvar; sym_kTry; sym_kType; sym_kUses; sym_kVar;
   sym_kWhile; sym_kWith]].

(** State 917. *)
Definition ts_parse_table_917 : parse_row :=
  [STATE 1266 [sym__procAttribute]; STATE 15237 [sym_procAttribute];
   STATE 912 [aux_sym_declProcFwd_repeat1]; ACTIONS 8728 [anon_sym_SEMI; anon_sym_COMMA];
   ACTIONS 8730 [anon_sym_LBRACK]; ACTIONS 8733 [anon_sym_LPAREN];
   ACTIONS 8728 [aux_sym__literalString_token1; anon_sym_POUND];
   ACTIONS 8733 [aux_sym__literalInt_token1]; ACTIONS 8728 [aux_sym__literalInt_token2;
   aux_sym__literalInt_token3]; ACTIONS 8733 [aux_sym__literalFloat_token1];
   ACTIONS 8728 [aux_sym_ppUsesBlock_token1; aux_sym_ppUsesBlock_token2;
   aux_sym_ppUsesBlock_token3]; ACTIONS 8733 [sym_kAdd; sym_kSub]; ACTIONS 8728 [sym_kAt;
   sym_kTrue; sym_kFalse]; ACTIONS 3 [sym__space]; ACTIONS 5 [sym_ppDirective];
   ACTIONS 3 [sym_comment]; ACTIONS 8728 [sym_ppFragmentExpr; sym__literalStringMultiline;
   sym_identifier]; ACTIONS 8735 [sym_kDefault; sym_kNodefault]; ACTIONS 8738 [sym_kDispId];
   ACTIONS 8728 [sym_kGeneric; sym_kSpecialize; sym_kOperator]; ACTIONS 8741 [sym_kPublic];
   ACTIONS 8735 [sym_kStatic; sym_kVirtual; sym_kAbstract; sym_kDynamic; sym_kOverride;
   sym_kOverload; sym_kReintroduce; sym_kStdcall; sym_kCdecl; sym_kCppdecl; sym_kPascal;
   sym_kRegister; sym_kMwpascal]; ACTIONS 8744 [sym_kMessage]; ACTIONS 8747 [sym_kDeprecated];
   ACTIONS 8735 [sym_kExperimental; sym_kPlatform; sym_kUnimplemented; sym_kCvar];
   ACTIONS 8750 [sym_kExport]; ACTIONS 8735 [sym_kFar; sym_kNear; sym_kSafecall; sym_kAssembler;
   sym_kNostackframe; sym_kInterrupt; sym_kNoreturn; sym_kIocheck; sym_kLocal; sym_kHardfloat;
   sym_kSoftfloat; sym_kMs_abi_default; sym_kMs_abi_cdecl; sym_kSaveregisters;
   sym_kSysv_abi_default; sym_kSysv_abi_cdecl; sym_kVectorcall; sym_kVarargs; sym_kWinapi];
   ACTIONS 8753 [sym_kAlias]; ACTIONS 8728 [sym_kAsm; sym_kBegin; sym_kCase; sym_kClass;
   sym_kConst; sym_kConstructor; sym_kDestructor; sym_kExports; sym_kFor; sym_kFunction;
   sym_kGoto; sym_kIf; sym_kInherited]; ACTIONS 1016 [sym_kInline]; ACTIONS 8728 [sym_kLabel;
   sym_kNil; sym_kNot; sym_kProcedure; sym_kProperty; sym_kRaise; sym_kRepeat;
   sym_kResourcestring; sym_kString; sym_kThreadvar; sym_kTry; sym_kType; sym_kUses; sym_kVar;
   sym_kWhile; sym_kWith]].

(** State 918. *)
Definition ts_parse_table_918 : parse_row :=
  [STATE 1266 [sym__procAttribute]; STATE 15237 [sym_procAttribute];
   STATE 912 [aux_sym_declProcFwd_repeat1]; ACTIONS 8756 [anon_sym_SEMI; anon_sym_COMMA];
   ACTIONS 8758 [anon_sym_LBRACK]; ACTIONS 8761 [anon_sym_LPAREN];
   ACTIONS 8756 [aux_sym__literalString_token1; anon_sym_POUND];
   ACTIONS 8761 [aux_sym__literalInt_token1]; ACTIONS 8756 [aux_sym__literalInt_token2;
   aux_sym__literalInt_token3]; ACTIONS 8761 [aux_sym__literalFloat_token1];
   ACTIONS 8756 [aux_sym_ppUsesBlock_token1; aux_sym_ppUsesBlock_token2;
   aux_sym_ppUsesBlock_token3]; ACTIONS 8761 [sym_kAdd; sym_kSub]; ACTIONS 8756 [sym_kAt;
   sym_kTrue; sym_kFalse]; ACTIONS 3 [sym__space]; ACTIONS 5 [sym_ppDirective];
   ACTIONS 3 [sym_comment]; ACTIONS 8756 [sym_ppFragmentExpr; sym__literalStringMultiline;
   sym_identifier]; ACTIONS 8763 [sym_kDefault; sym_kNodefault]; ACTIONS 8766 [sym_kDispId];
   ACTIONS 8756 [sym_kGeneric; sym_kSpecialize; sym_kOperator]; ACTIONS 8769 [sym_kPublic];
   ACTIONS 8763 [sym_kStatic; sym_kVirtual; sym_kAbstract; sym_kDynamic; sym_kOverride;
   sym_kOverload; sym_kReintroduce; sym_kStdcall; sym_kCdecl; sym_kCppdecl; sym_kPascal;
   sym_kRegister; sym_kMwpascal]; ACTIONS 8772 [sym_kMessage]; ACTIONS 8775 [sym_kDeprecated];
   ACTIONS 8763 [sym_kExperimental; sym_kPlatform; sym_kUnimplemented; sym_kCvar];
   ACTIONS 8778 [sym_kExport]; ACTIONS 8763 [sym_kFar; sym_kNear; sym_kSafecall; sym_kAssembler;
   sym_kNostackframe; sym_kInterrupt; sym_kNoreturn; sym_kIocheck; sym_kLocal; sym_kHardfloat;
   sym_kSoftfloat; sym_kMs_abi_default; sym_kMs_abi_cdecl; sym_kSaveregisters;
   sym_kSysv_abi_default; sym_kSysv_abi_cdecl; sym_kVectorcall; sym_kVarargs; sym_kWinapi];
   ACTIONS 8781 [sym_kAlias]; ACTIONS 8756 [sym_kAsm; sym_kBegin; sym_kCase; sym_kClass;
   sym_kConst; sym_kConstructor; sym_kDestructor; sym_kExports; sym_kFor; sym_kFunction;
   sym_kGoto; sym_kIf; sym_kInherited]; ACTIONS 1016 [sym_kInline]; ACTIONS 8756 [sym_kLabel;
   sym_kNil; sym_kNot; sym_kProcedure; sym_kProperty; sym_kRaise; sym_kRepeat;
   sym_kResourcestring; sym_kString; sym_kThreadvar; sym_kTry; sym_kType; sym_kUses; sym_kVar;
   sym_kWhile; sym_kWith]].

(** State 919. *)
Definition ts_parse_table_919 : parse_row :=
  [STATE 5965 [sym_if]; STATE 6011 [sym_ifElse; sym_while; sym_repeat; sym_for; sym_foreach;
   sym_try; sym_case; sym_block; sym_asm; sym_with; sym_raise; sym_statement; sym_goto;
   sym_labeledStatement; sym__statement]; STATE 12542 [sym_ifTr; sym_ifElseTr; sym_whileTr;
   sym_repeatTr; sym_forTr; sym_foreachTr; sym_tryTr; sym_caseTr]; STATE 12758 [sym_blockTr];
   STATE 12542 [sym_asmTr; sym_withTr; sym_raiseTr; sym_statementTr; sym_gotoTr;
   sym_labeledStatementTr; sym__statementTr]; STATE 12174 [sym_assignment];
   STATE 11928 [sym_varAssignDef]; STATE 12174 [sym_varDef; sym_constDef]; STATE 992 [sym_label];
   STATE 7749 [sym__expr; sym_exprConditional]; STATE 7153 [sym__ref; sym_lambda; sym_inherited;
   sym_exprDot; sym_exprDeref; sym_exprAs; sym_exprTpl; sym_exprSubscript; sym_exprCall];
   STATE 7749 [sym_exprBinary; sym_exprUnary]; STATE 7153 [sym_exprParens; sym_exprBrackets;
   sym__literal; sym_literalString]; STATE 6416 [sym__literalString; sym_literalChar];
   STATE 7153 [sym_literalNumber]; STATE 7250 [sym__literalInt; sym__literalFloat];
   STATE 6416 [aux_sym_literalString_repeat1]; ACTIONS 8086 [anon_sym_SEMI];
   ACTIONS 7422 [anon_sym_LBRACK]; ACTIONS 7424 [anon_sym_LPAREN];
   ACTIONS 7426 [aux_sym__literalString_token1]; ACTIONS 7428 [anon_sym_POUND];
   ACTIONS 7430 [aux_sym__literalInt_token1]; ACTIONS 7432 [aux_sym__literalInt_token2;
   aux_sym__literalInt_token3]; ACTIONS 7430 [aux_sym__literalFloat_token1];
   ACTIONS 7434 [sym_kAdd; sym_kSub]; ACTIONS 7436 [sym_kAt]; ACTIONS 7438 [sym_kTrue;
   sym_kFalse]; ACTIONS 7440 [sym_labelNumber]; ACTIONS 3 [sym__space];
   ACTIONS 5 [sym_ppDirective]; ACTIONS 3 [sym_comment]; ACTIONS 7438 [sym_ppFragmentExpr];
   ACTIONS 7426 [sym__literalStringMultiline]; ACTIONS 7442 [sym_identifier];
   ACTIONS 7444 [sym_kSpecialize]; ACTIONS 8088 [sym_kAsm]; ACTIONS 8090 [sym_kBegin];
   ACTIONS 8092 [sym_kCase]; ACTIONS 7452 [sym_kConst]; ACTIONS 8784 [sym_kElse];
   ACTIONS 3230 [sym_kExcept; sym_kFinally]; ACTIONS 8094 [sym_kFor];
   ACTIONS 7456 [sym_kFunction]; ACTIONS 8096 [sym_kGoto]; ACTIONS 8098 [sym_kIf];
   ACTIONS 7462 [sym_kInherited]; ACTIONS 7438 [sym_kNil]; ACTIONS 7436 [sym_kNot];
   ACTIONS 7456 [sym_kProcedure]; ACTIONS 8100 [sym_kRaise]; ACTIONS 8102 [sym_kRepeat];
   ACTIONS 7468 [sym_kString]; ACTIONS 8104 [sym_kTry]; ACTIONS 7472 [sym_kVar];
   ACTIONS 8106 [sym_kWhile]; ACTIONS 8108 [sym_kWith]].

(** State 920. *)
Definition ts_parse_table_920 : parse_row :=
  [STATE 1266 [sym__procAttribute]; STATE 15237 [sym_procAttribute];
   STATE 934 [aux_sym_declProcFwd_repeat1]; ACTIONS 8786 [anon_sym_SEMI; anon_sym_COMMA];
   ACTIONS 8788 [anon_sym_LBRACK]; ACTIONS 8791 [anon_sym_LPAREN];
   ACTIONS 8786 [aux_sym__literalString_token1; anon_sym_POUND];
   ACTIONS 8791 [aux_sym__literalInt_token1]; ACTIONS 8786 [aux_sym__literalInt_token2;
   aux_sym__literalInt_token3]; ACTIONS 8791 [aux_sym__literalFloat_token1];
   ACTIONS 8786 [aux_sym_ppUsesBlock_token1; aux_sym_ppUsesBlock_token2;
   aux_sym_ppUsesBlock_token3]; ACTIONS 8791 [sym_kAdd; sym_kSub]; ACTIONS 8786 [sym_kAt;
   sym_kTrue; sym_kFalse]; ACTIONS 3 [sym__space]; ACTIONS 5 [sym_ppDirective];
   ACTIONS 3 [sym_comment]; ACTIONS 8786 [sym_ppFragmentExpr; sym__literalStringMultiline;
   sym_identifier]; ACTIONS 8793 [sym_kDefault; sym_kNodefault]; ACTIONS 8796 [sym_kDispId];
   ACTIONS 8786 [sym_kGeneric; sym_kSpecialize; sym_kOperator]; ACTIONS 8799 [sym_kPublic];
   ACTIONS 8793 [sym_kStatic; sym_kVirtual; sym_kAbstract; sym_kDynamic; sym_kOverride;
   sym_kOverload; sym_kReintroduce; sym_kStdcall; sym_kCdecl; sym_kCppdecl; sym_kPascal;
   sym_kRegister; sym_kMwpascal]; ACTIONS 8802 [sym_kMessage]; ACTIONS 8805 [sym_kDeprecated];
   ACTIONS 8793 [sym_kExperimental; sym_kPlatform; sym_kUnimplemented; sym_kCvar];
   ACTIONS 8808 [sym_kExport]; ACTIONS 8793 [sym_kFar; sym_kNear; sym_kSafecall; sym_kAssembler;
   sym_kNostackframe; sym_kInterrupt; sym_kNoreturn; sym_kIocheck; sym_kLocal; sym_kHardfloat;
   sym_kSoftfloat; sym_kMs_abi_default; sym_kMs_abi_cdecl; sym_kSaveregisters;
   sym_kSysv_abi_default; sym_kSysv_abi_cdecl; sym_kVectorcall; sym_kVarargs; sym_kWinapi];
   ACTIONS 8811 [sym_kAlias]; ACTIONS 8786 [sym_kAsm; sym_kBegin; sym_kCase; sym_kClass;
   sym_kConst; sym_kConstructor; sym_kDestructor; sym_kExports; sym_kFor; sym_kFunction;
   sym_kGoto; sym_kIf; sym_kInherited]; ACTIONS 1016 [sym_kInline]; ACTIONS 8786 [sym_kLabel;
   sym_kNil; sym_kNot; sym_kProcedure; sym_kProperty; sym_kRaise; sym_kRepeat;
   sym_kResourcestring; sym_kString; sym_kThreadvar; sym_kTry; sym_kType; sym_kUses; sym_kVar;
   sym_kWhile; sym_kWith]].

(** State 921. *)
Definition ts_parse_table_921 : parse_row :=
  [STATE 1266 [sym__procAttribute]; STATE 15237 [sym_procAttribute];
   STATE 912 [aux_sym_declProcFwd_repeat1]; ACTIONS 8814 [anon_sym_SEMI; anon_sym_COMMA];
   ACTIONS 8816 [anon_sym_LBRACK]; ACTIONS 8819 [anon_sym_LPAREN];
   ACTIONS 8814 [aux_sym__literalString_token1; anon_sym_POUND];
   ACTIONS 8819 [aux_sym__literalInt_token1]; ACTIONS 8814 [aux_sym__literalInt_token2;
   aux_sym__literalInt_token3]; ACTIONS 8819 [aux_sym__literalFloat_token1];
   ACTIONS 8814 [aux_sym_ppUsesBlock_token1; aux_sym_ppUsesBlock_token2;
   aux_sym_ppUsesBlock_token3]; ACTIONS 8819 [sym_kAdd; sym_kSub]; ACTIONS 8814 [sym_kAt;
   sym_kTrue; sym_kFalse]; ACTIONS 3 [sym__space]; ACTIONS 5 [sym_ppDirective];
   ACTIONS 3 [sym_comment]; ACTIONS 8814 [sym_ppFragmentExpr; sym__literalStringMultiline;
   sym_identifier]; ACTIONS 8821 [sym_kDefault; sym_kNodefault]; ACTIONS 8824 [sym_kDispId];
   ACTIONS 8814 [sym_kGeneric; sym_kSpecialize; sym_kOperator]; ACTIONS 8827 [sym_kPublic];
   ACTIONS 8821 [sym_kStatic; sym_kVirtual; sym_kAbstract; sym_kDynamic; sym_kOverride;
   sym_kOverload; sym_kReintroduce; sym_kStdcall; sym_kCdecl; sym_kCppdecl; sym_kPascal;
   sym_kRegister; sym_kMwpascal]; ACTIONS 8830 [sym_kMessage]; ACTIONS 8833 [sym_kDeprecated];
   ACTIONS 8821 [sym_kExperimental; sym_kPlatform; sym_kUnimplemented; sym_kCvar];
   ACTIONS 8836 [sym_kExport]; ACTIONS 8821 [sym_kFar; sym_kNear; sym_kSafecall; sym_kAssembler;
   sym_kNostackframe; sym_kInterrupt; sym_kNoreturn; sym_kIocheck; sym_kLocal; sym_kHardfloat;
   sym_kSoftfloat; sym_kMs_abi_default; sym_kMs_abi_cdecl; sym_kSaveregisters;
   sym_kSysv_abi_default; sym_kSysv_abi_cdecl; sym_kVectorcall; sym_kVarargs; sym_kWinapi];
   ACTIONS 8839 [sym_kAlias]; ACTIONS 8814 [sym_kAsm; sym_kBegin; sym_kCase; sym_kClass;
   sym_kConst; sym_kConstructor; sym_kDestructor; sym_kExports; sym_kFor; sym_kFunction;
   sym_kGoto; sym_kIf; sym_kInherited]; ACTIONS 1016 [sym_kInline]; ACTIONS 8814 [sym_kLabel;
   sym_kNil; sym_kNot; sym_kProcedure; sym_kProperty; sym_kRaise; sym_kRepeat;
   sym_kResourcestring; sym_kString; sym_kThreadvar; sym_kTry; sym_kType; sym_kUses; sym_kVar;
   sym_kWhile; sym_kWith]].

(** State 922. *)
Definition ts_parse_table_922 : parse_row :=
  [STATE 1266 [sym__procAttribute]; STATE 15237 [sym_procAttribute];
   STATE 912 [aux_sym_declProcFwd_repeat1]; ACTIONS 8842 [anon_sym_SEMI; anon_sym_COMMA];
   ACTIONS 8844 [anon_sym_LBRACK]; ACTIONS 8847 [anon_sym_LPAREN];
   ACTIONS 8842 [aux_sym__literalString_token1; anon_sym_POUND];
   ACTIONS 8847 [aux_sym__literalInt_token1]; ACTIONS 8842 [aux_sym__literalInt_token2;
   aux_sym__literalInt_token3]; ACTIONS 8847 [aux_sym__literalFloat_token1];
   ACTIONS 8842 [aux_sym_ppUsesBlock_token1; aux_sym_ppUsesBlock_token2;
   aux_sym_ppUsesBlock_token3]; ACTIONS 8847 [sym_kAdd; sym_kSub]; ACTIONS 8842 [sym_kAt;
   sym_kTrue; sym_kFalse]; ACTIONS 3 [sym__space]; ACTIONS 5 [sym_ppDirective];
   ACTIONS 3 [sym_comment]; ACTIONS 8842 [sym_ppFragmentExpr; sym__literalStringMultiline;
   sym_identifier]; ACTIONS 8849 [sym_kDefault; sym_kNodefault]; ACTIONS 8852 [sym_kDispId];
   ACTIONS 8842 [sym_kGeneric; sym_kSpecialize; sym_kOperator]; ACTIONS 8855 [sym_kPublic];
   ACTIONS 8849 [sym_kStatic; sym_kVirtual; sym_kAbstract; sym_kDynamic; sym_kOverride;
   sym_kOverload; sym_kReintroduce; sym_kStdcall; sym_kCdecl; sym_kCppdecl; sym_kPascal;
   sym_kRegister; sym_kMwpascal]; ACTIONS 8858 [sym_kMessage]; ACTIONS 8861 [sym_kDeprecated];
   ACTIONS 8849 [sym_kExperimental; sym_kPlatform; sym_kUnimplemented; sym_kCvar];
   ACTIONS 8864 [sym_kExport]; ACTIONS 8849 [sym_kFar; sym_kNear; sym_kSafecall; sym_kAssembler;
   sym_kNostackframe; sym_kInterrupt; sym_kNoreturn; sym_kIocheck; sym_kLocal; sym_kHardfloat;
   sym_kSoftfloat; sym_kMs_abi_default; sym_kMs_abi_cdecl; sym_kSaveregisters;
   sym_kSysv_abi_default; sym_kSysv_abi_cdecl; sym_kVectorcall; sym_kVarargs; sym_kWinapi];
   ACTIONS 8867 [sym_kAlias]; ACTIONS 8842 [sym_kAsm; sym_kBegin; sym_kCase; sym_kClass;
   sym_kConst; sym_kConstructor; sym_kDestructor; sym_kExports; sym_kFor; sym_kFunction;
   sym_kGoto; sym_kIf; sym_kInherited]; ACTIONS 1016 [sym_kInline]; ACTIONS 8842 [sym_kLabel;
   sym_kNil; sym_kNot; sym_kProcedure; sym_kProperty; sym_kRaise; sym_kRepeat;
   sym_kResourcestring; sym_kString; sym_kThreadvar; sym_kTry; sym_kType; sym_kUses; sym_kVar;
   sym_kWhile; sym_kWith]].

(** State 923. *)
Definition ts_parse_table_923 : parse_row :=
  [STATE 1266 [sym__procAttribute]; STATE 15237 [sym_procAttribute];
   STATE 956 [aux_sym_declProcFwd_repeat1]; ACTIONS 8870 [anon_sym_SEMI; anon_sym_COMMA];
   ACTIONS 8872 [anon_sym_LBRACK]; ACTIONS 8875 [anon_sym_LPAREN];
   ACTIONS 8870 [aux_sym__literalString_token1; anon_sym_POUND];
   ACTIONS 8875 [aux_sym__literalInt_token1]; ACTIONS 8870 [aux_sym__literalInt_token2;
   aux_sym__literalInt_token3]; ACTIONS 8875 [aux_sym__literalFloat_token1];
   ACTIONS 8870 [aux_sym_ppUsesBlock_token1; aux_sym_ppUsesBlock_token2;
   aux_sym_ppUsesBlock_token3]; ACTIONS 8875 [sym_kAdd; sym_kSub]; ACTIONS 8870 [sym_kAt;
   sym_kTrue; sym_kFalse]; ACTIONS 3 [sym__space]; ACTIONS 5 [sym_ppDirective];
   ACTIONS 3 [sym_comment]; ACTIONS 8870 [sym_ppFragmentExpr; sym__literalStringMultiline;
   sym_identifier]; ACTIONS 8877 [sym_kDefault; sym_kNodefault]; ACTIONS 8880 [sym_kDispId];
   ACTIONS 8870 [sym_kGeneric; sym_kSpecialize; sym_kOperator]; ACTIONS 8883 [sym_kPublic];
   ACTIONS 8877 [sym_kStatic; sym_kVirtual; sym_kAbstract; sym_kDynamic; sym_kOverride;
   sym_kOverload; sym_kReintroduce; sym_kStdcall; sym_kCdecl; sym_kCppdecl; sym_kPascal;
   sym_kRegister; sym_kMwpascal]; ACTIONS 8886 [sym_kMessage]; ACTIONS 8889 [sym_kDeprecated];
   ACTIONS 8877 [sym_kExperimental; sym_kPlatform; sym_kUnimplemented; sym_kCvar];
   ACTIONS 8892 [sym_kExport]; ACTIONS 8877 [sym_kFar; sym_kNear; sym_kSafecall; sym_kAssembler;
   sym_kNostackframe; sym_kInterrupt; sym_kNoreturn; sym_kIocheck; sym_kLocal; sym_kHardfloat;
   sym_kSoftfloat; sym_kMs_abi_default; sym_kMs_abi_cdecl; sym_kSaveregisters;
   sym_kSysv_abi_default; sym_kSysv_abi_cdecl; sym_kVectorcall; sym_kVarargs; sym_kWinapi];
   ACTIONS 8895 [sym_kAlias]; ACTIONS 8870 [sym_kAsm; sym_kBegin; sym_kCase; sym_kClass;
   sym_kConst; sym_kConstructor; sym_kDestructor; sym_kExports; sym_kFor; sym_kFunction;
   sym_kGoto; sym_kIf; sym_kInherited]; ACTIONS 1016 [sym_kInline]; ACTIONS 8870 [sym_kLabel;
   sym_kNil; sym_kNot; sym_kProcedure; sym_kProperty; sym_kRaise; sym_kRepeat;
   sym_kResourcestring; sym_kString; sym_kThreadvar; sym_kTry; sym_kType; sym_kUses; sym_kVar;
   sym_kWhile; sym_kWith]].

(** State 924. *)
Definition ts_parse_table_924 : parse_row :=
  [STATE 1266 [sym__procAttribute]; STATE 15237 [sym_procAttribute];
   STATE 935 [aux_sym_declProcFwd_repeat1]; ACTIONS 8898 [anon_sym_SEMI; anon_sym_COMMA];
   ACTIONS 8900 [anon_sym_LBRACK]; ACTIONS 8903 [anon_sym_LPAREN];
   ACTIONS 8898 [aux_sym__literalString_token1; anon_sym_POUND];
   ACTIONS 8903 [aux_sym__literalInt_token1]; ACTIONS 8898 [aux_sym__literalInt_token2;
   aux_sym__literalInt_token3]; ACTIONS 8903 [aux_sym__literalFloat_token1];
   ACTIONS 8898 [aux_sym_ppUsesBlock_token1; aux_sym_ppUsesBlock_token2;
   aux_sym_ppUsesBlock_token3]; ACTIONS 8903 [sym_kAdd; sym_kSub]; ACTIONS 8898 [sym_kAt;
   sym_kTrue; sym_kFalse]; ACTIONS 3 [sym__space]; ACTIONS 5 [sym_ppDirective];
   ACTIONS 3 [sym_comment]; ACTIONS 8898 [sym_ppFragmentExpr; sym__literalStringMultiline;
   sym_identifier]; ACTIONS 8905 [sym_kDefault; sym_kNodefault]; ACTIONS 8908 [sym_kDispId];
   ACTIONS 8898 [sym_kGeneric; sym_kSpecialize; sym_kOperator]; ACTIONS 8911 [sym_kPublic];
   ACTIONS 8905 [sym_kStatic; sym_kVirtual; sym_kAbstract; sym_kDynamic; sym_kOverride;
   sym_kOverload; sym_kReintroduce; sym_kStdcall; sym_kCdecl; sym_kCppdecl; sym_kPascal;
   sym_kRegister; sym_kMwpascal]; ACTIONS 8914 [sym_kMessage]; ACTIONS 8917 [sym_kDeprecated];
   ACTIONS 8905 [sym_kExperimental; sym_kPlatform; sym_kUnimplemented; sym_kCvar];
   ACTIONS 8920 [sym_kExport]; ACTIONS 8905 [sym_kFar; sym_kNear; sym_kSafecall; sym_kAssembler;
   sym_kNostackframe; sym_kInterrupt; sym_kNoreturn; sym_kIocheck; sym_kLocal; sym_kHardfloat;
   sym_kSoftfloat; sym_kMs_abi_default; sym_kMs_abi_cdecl; sym_kSaveregisters;
   sym_kSysv_abi_default; sym_kSysv_abi_cdecl; sym_kVectorcall; sym_kVarargs; sym_kWinapi];
   ACTIONS 8923 [sym_kAlias]; ACTIONS 8898 [sym_kAsm; sym_kBegin; sym_kCase; sym_kClass;
   sym_kConst; sym_kConstructor; sym_kDestructor; sym_kExports; sym_kFor; sym_kFunction;
   sym_kGoto; sym_kIf; sym_kInherited]; ACTIONS 1016 [sym_kInline]; ACTIONS 8898 [sym_kLabel;
   sym_kNil; sym_kNot; sym_kProcedure; sym_kProperty; sym_kRaise; sym_kRepeat;
   sym_kResourcestring; sym_kString; sym_kThreadvar; sym_kTry; sym_kType; sym_kUses; sym_kVar;
   sym_kWhile; sym_kWith]].

(** State 925. *)
Definition ts_parse_table_925 : parse_row :=
  [STATE 1266 [sym__procAttribute]; STATE 15237 [sym_procAttribute];
   STATE 876 [aux_sym_declProcFwd_repeat1]; ACTIONS 8926 [anon_sym_SEMI; anon_sym_COMMA];
   ACTIONS 8928 [anon_sym_LBRACK]; ACTIONS 8931 [anon_sym_LPAREN];
   ACTIONS 8926 [aux_sym__literalString_token1; anon_sym_POUND];
   ACTIONS 8931 [aux_sym__literalInt_token1]; ACTIONS 8926 [aux_sym__literalInt_token2;
   aux_sym__literalInt_token3]; ACTIONS 8931 [aux_sym__literalFloat_token1];
   ACTIONS 8926 [aux_sym_ppUsesBlock_token1; aux_sym_ppUsesBlock_token2;
   aux_sym_ppUsesBlock_token3]; ACTIONS 8931 [sym_kAdd; sym_kSub]; ACTIONS 8926 [sym_kAt;
   sym_kTrue; sym_kFalse]; ACTIONS 3 [sym__space]; ACTIONS 5 [sym_ppDirective];
   ACTIONS 3 [sym_comment]; ACTIONS 8926 [sym_ppFragmentExpr; sym__literalStringMultiline;
   sym_identifier]; ACTIONS 8933 [sym_kDefault; sym_kNodefault]; ACTIONS 8936 [sym_kDispId];
   ACTIONS 8926 [sym_kGeneric; sym_kSpecialize; sym_kOperator]; ACTIONS 8939 [sym_kPublic];
   ACTIONS 8933 [sym_kStatic; sym_kVirtual; sym_kAbstract; sym_kDynamic; sym_kOverride;
   sym_kOverload; sym_kReintroduce; sym_kStdcall; sym_kCdecl; sym_kCppdecl; sym_kPascal;
   sym_kRegister; sym_kMwpascal]; ACTIONS 8942 [sym_kMessage]; ACTIONS 8945 [sym_kDeprecated];
   ACTIONS 8933 [sym_kExperimental; sym_kPlatform; sym_kUnimplemented; sym_kCvar];
   ACTIONS 8948 [sym_kExport]; ACTIONS 8933 [sym_kFar; sym_kNear; sym_kSafecall; sym_kAssembler;
   sym_kNostackframe; sym_kInterrupt; sym_kNoreturn; sym_kIocheck; sym_kLocal; sym_kHardfloat;
   sym_kSoftfloat; sym_kMs_abi_default; sym_kMs_abi_cdecl; sym_kSaveregisters;
   sym_kSysv_abi_default; sym_kSysv_abi_cdecl; sym_kVectorcall; sym_kVarargs; sym_kWinapi];
   ACTIONS 8951 [sym_kAlias]; ACTIONS 8926 [sym_kAsm; sym_kBegin; sym_kCase; sym_kClass;
   sym_kConst; sym_kConstructor; sym_kDestructor; sym_kExports; sym_kFor; sym_kFunction;
   sym_kGoto; sym_kIf; sym_kInherited]; ACTIONS 1016 [sym_kInline]; ACTIONS 8926 [sym_kLabel;
   sym_kNil; sym_kNot; sym_kProcedure; sym_kProperty; sym_kRaise; sym_kRepeat;
   sym_kResourcestring; sym_kString; sym_kThreadvar; sym_kTry; sym_kType; sym_kUses; sym_kVar;
   sym_kWhile; sym_kWith]].

(** State 926. *)
Definition ts_parse_table_926 : parse_row :=
  [STATE 1266 [sym__procAttribute]; STATE 15237 [sym_procAttribute];
   STATE 896 [aux_sym_declProcFwd_repeat1]; ACTIONS 8954 [anon_sym_SEMI; anon_sym_COMMA];
   ACTIONS 8956 [anon_sym_LBRACK]; ACTIONS 8959 [anon_sym_LPAREN];
   ACTIONS 8954 [aux_sym__literalString_token1; anon_sym_POUND];
   ACTIONS 8959 [aux_sym__literalInt_token1]; ACTIONS 8954 [aux_sym__literalInt_token2;
   aux_sym__literalInt_token3]; ACTIONS 8959 [aux_sym__literalFloat_token1];
   ACTIONS 8954 [aux_sym_ppUsesBlock_token1; aux_sym_ppUsesBlock_token2;
   aux_sym_ppUsesBlock_token3]; ACTIONS 8959 [sym_kAdd; sym_kSub]; ACTIONS 8954 [sym_kAt;
   sym_kTrue; sym_kFalse]; ACTIONS 3 [sym__space]; ACTIONS 5 [sym_ppDirective];
   ACTIONS 3 [sym_comment]; ACTIONS 8954 [sym_ppFragmentExpr; sym__literalStringMultiline;
   sym_identifier]; ACTIONS 8961 [sym_kDefault; sym_kNodefault]; ACTIONS 8964 [sym_kDispId];
   ACTIONS 8954 [sym_kGeneric; sym_kSpecialize; sym_kOperator]; ACTIONS 8967 [sym_kPublic];
   ACTIONS 8961 [sym_kStatic; sym_kVirtual; sym_kAbstract; sym_kDynamic; sym_kOverride;
   sym_kOverload; sym_kReintroduce; sym_kStdcall; sym_kCdecl; sym_kCppdecl; sym_kPascal;
   sym_kRegister; sym_kMwpascal]; ACTIONS 8970 [sym_kMessage]; ACTIONS 8973 [sym_kDeprecated];
   ACTIONS 8961 [sym_kExperimental; sym_kPlatform; sym_kUnimplemented; sym_kCvar];
   ACTIONS 8976 [sym_kExport]; ACTIONS 8961 [sym_kFar; sym_kNear; sym_kSafecall; sym_kAssembler;
   sym_kNostackframe; sym_kInterrupt; sym_kNoreturn; sym_kIocheck; sym_kLocal; sym_kHardfloat;
   sym_kSoftfloat; sym_kMs_abi_default; sym_kMs_abi_cdecl; sym_kSaveregisters;
   sym_kSysv_abi_default; sym_kSysv_abi_cdecl; sym_kVectorcall; sym_kVarargs; sym_kWinapi];
   ACTIONS 8979 [sym_kAlias]; ACTIONS 8954 [sym_kAsm; sym_kBegin; sym_kCase; sym_kClass;
   sym_kConst; sym_kConstructor; sym_kDestructor; sym_kExports; sym_kFor; sym_kFunction;
   sym_kGoto; sym_kIf; sym_kInherited]; ACTIONS 1016 [sym_kInline]; ACTIONS 8954 [sym_kLabel;
   sym_kNil; sym_kNot; sym_kProcedure; sym_kProperty; sym_kRaise; sym_kRepeat;
   sym_kResourcestring; sym_kString; sym_kThreadvar; sym_kTry; sym_kType; sym_kUses; sym_kVar;
   sym_kWhile; sym_kWith]].

(** State 927. *)
Definition ts_parse_table_927 : parse_row :=
  [STATE 1266 [sym__procAttribute]; STATE 15237 [sym_procAttribute];
   STATE 938 [aux_sym_declProcFwd_repeat1]; ACTIONS 8982 [anon_sym_SEMI; anon_sym_COMMA];
   ACTIONS 8984 [anon_sym_LBRACK]; ACTIONS 8987 [anon_sym_LPAREN];
   ACTIONS 8982 [aux_sym__literalString_token1; anon_sym_POUND];
   ACTIONS 8987 [aux_sym__literalInt_token1]; ACTIONS 8982 [aux_sym__literalInt_token2;
   aux_sym__literalInt_token3]; ACTIONS 8987 [aux_sym__literalFloat_token1];
   ACTIONS 8982 [aux_sym_ppUsesBlock_token1; aux_sym_ppUsesBlock_token2;
   aux_sym_ppUsesBlock_token3]; ACTIONS 8987 [sym_kAdd; sym_kSub]; ACTIONS 8982 [sym_kAt;
   sym_kTrue; sym_kFalse]; ACTIONS 3 [sym__space]; ACTIONS 5 [sym_ppDirective];
   ACTIONS 3 [sym_comment]; ACTIONS 8982 [sym_ppFragmentExpr; sym__literalStringMultiline;
   sym_identifier]; ACTIONS 8989 [sym_kDefault; sym_kNodefault]; ACTIONS 8992 [sym_kDispId];
   ACTIONS 8982 [sym_kGeneric; sym_kSpecialize; sym_kOperator]; ACTIONS 8995 [sym_kPublic];
   ACTIONS 8989 [sym_kStatic; sym_kVirtual; sym_kAbstract; sym_kDynamic; sym_kOverride;
   sym_kOverload; sym_kReintroduce; sym_kStdcall; sym_kCdecl; sym_kCppdecl; sym_kPascal;
   sym_kRegister; sym_kMwpascal]; ACTIONS 8998 [sym_kMessage]; ACTIONS 9001 [sym_kDeprecated];
   ACTIONS 8989 [sym_kExperimental; sym_kPlatform; sym_kUnimplemented; sym_kCvar];
   ACTIONS 9004 [sym_kExport]; ACTIONS 8989 [sym_kFar; sym_kNear; sym_kSafecall; sym_kAssembler;
   sym_kNostackframe; sym_kInterrupt; sym_kNoreturn; sym_kIocheck; sym_kLocal; sym_kHardfloat;
   sym_kSoftfloat; sym_kMs_abi_default; sym_kMs_abi_cdecl; sym_kSaveregisters;
   sym_kSysv_abi_default; sym_kSysv_abi_cdecl; sym_kVectorcall; sym_kVarargs; sym_kWinapi];
   ACTIONS 9007 [sym_kAlias]; ACTIONS 8982 [sym_kAsm; sym_kBegin; sym_kCase; sym_kClass;
   sym_kConst; sym_kConstructor; sym_kDestructor; sym_kExports; sym_kFor; sym_kFunction;
   sym_kGoto; sym_kIf; sym_kInherited]; ACTIONS 1016 [sym_kInline]; ACTIONS 8982 [sym_kLabel;
   sym_kNil; sym_kNot; sym_kProcedure; sym_kProperty; sym_kRaise; sym_kRepeat;
   sym_kResourcestring; sym_kString; sym_kThreadvar; sym_kTry; sym_kType; sym_kUses; sym_kVar;
   sym_kWhile; sym_kWith]].

(** State 928. *)
Definition ts_parse_table_928 : parse_row :=
  [STATE 1266 [sym__procAttribute]; STATE 15237 [sym_procAttribute];
   STATE 912 [aux_sym_declProcFwd_repeat1]; ACTIONS 9010 [anon_sym_SEMI; anon_sym_COMMA];
   ACTIONS 9012 [anon_sym_LBRACK]; ACTIONS 9015 [anon_sym_LPAREN];
   ACTIONS 9010 [aux_sym__literalString_token1; anon_sym_POUND];
   ACTIONS 9015 [aux_sym__literalInt_token1]; ACTIONS 9010 [aux_sym__literalInt_token2;
   aux_sym__literalInt_token3]; ACTIONS 9015 [aux_sym__literalFloat_token1];
   ACTIONS 9010 [aux_sym_ppUsesBlock_token1; aux_sym_ppUsesBlock_token2;
   aux_sym_ppUsesBlock_token3]; ACTIONS 9015 [sym_kAdd; sym_kSub]; ACTIONS 9010 [sym_kAt;
   sym_kTrue; sym_kFalse]; ACTIONS 3 [sym__space]; ACTIONS 5 [sym_ppDirective];
   ACTIONS 3 [sym_comment]; ACTIONS 9010 [sym_ppFragmentExpr; sym__literalStringMultiline;
   sym_identifier]; ACTIONS 9017 [sym_kDefault; sym_kNodefault]; ACTIONS 9020 [sym_kDispId];
   ACTIONS 9010 [sym_kGeneric; sym_kSpecialize; sym_kOperator]; ACTIONS 9023 [sym_kPublic];
   ACTIONS 9017 [sym_kStatic; sym_kVirtual; sym_kAbstract; sym_kDynamic; sym_kOverride;
   sym_kOverload; sym_kReintroduce; sym_kStdcall; sym_kCdecl; sym_kCppdecl; sym_kPascal;
   sym_kRegister; sym_kMwpascal]; ACTIONS 9026 [sym_kMessage]; ACTIONS 9029 [sym_kDeprecated];
   ACTIONS 9017 [sym_kExperimental; sym_kPlatform; sym_kUnimplemented; sym_kCvar];
   ACTIONS 9032 [sym_kExport]; ACTIONS 9017 [sym_kFar; sym_kNear; sym_kSafecall; sym_kAssembler;
   sym_kNostackframe; sym_kInterrupt; sym_kNoreturn; sym_kIocheck; sym_kLocal; sym_kHardfloat;
   sym_kSoftfloat; sym_kMs_abi_default; sym_kMs_abi_cdecl; sym_kSaveregisters;
   sym_kSysv_abi_default; sym_kSysv_abi_cdecl; sym_kVectorcall; sym_kVarargs; sym_kWinapi];
   ACTIONS 9035 [sym_kAlias]; ACTIONS 9010 [sym_kAsm; sym_kBegin; sym_kCase; sym_kClass;
   sym_kConst; sym_kConstructor; sym_kDestructor; sym_kExports; sym_kFor; sym_kFunction;
   sym_kGoto; sym_kIf; sym_kInherited]; ACTIONS 1016 [sym_kInline]; ACTIONS 9010 [sym_kLabel;
   sym_kNil; sym_kNot; sym_kProcedure; sym_kProperty; sym_kRaise; sym_kRepeat;
   sym_kResourcestring; sym_kString; sym_kThreadvar; sym_kTry; sym_kType; sym_kUses; sym_kVar;
   sym_kWhile; sym_kWith]].

(** State 929. *)
Definition ts_parse_table_929 : parse_row :=
  [STATE 1266 [sym__procAttribute]; STATE 15237 [sym_procAttribute];
   STATE 960 [aux_sym_declProcFwd_repeat1]; ACTIONS 9038 [anon_sym_SEMI; anon_sym_COMMA];
   ACTIONS 9040 [anon_sym_LBRACK]; ACTIONS 9043 [anon_sym_LPAREN];
   ACTIONS 9038 [aux_sym__literalString_token1; anon_sym_POUND];
   ACTIONS 9043 [aux_sym__literalInt_token1]; ACTIONS 9038 [aux_sym__literalInt_token2;
   aux_sym__literalInt_token3]; ACTIONS 9043 [aux_sym__literalFloat_token1];
   ACTIONS 9038 [aux_sym_ppUsesBlock_token1; aux_sym_ppUsesBlock_token2;
   aux_sym_ppUsesBlock_token3]; ACTIONS 9043 [sym_kAdd; sym_kSub]; ACTIONS 9038 [sym_kAt;
   sym_kTrue; sym_kFalse]; ACTIONS 3 [sym__space]; ACTIONS 5 [sym_ppDirective];
   ACTIONS 3 [sym_comment]; ACTIONS 9038 [sym_ppFragmentExpr; sym__literalStringMultiline;
   sym_identifier]; ACTIONS 9045 [sym_kDefault; sym_kNodefault]; ACTIONS 9048 [sym_kDispId];
   ACTIONS 9038 [sym_kGeneric; sym_kSpecialize; sym_kOperator]; ACTIONS 9051 [sym_kPublic];
   ACTIONS 9045 [sym_kStatic; sym_kVirtual; sym_kAbstract; sym_kDynamic; sym_kOverride;
   sym_kOverload; sym_kReintroduce; sym_kStdcall; sym_kCdecl; sym_kCppdecl; sym_kPascal;
   sym_kRegister; sym_kMwpascal]; ACTIONS 9054 [sym_kMessage]; ACTIONS 9057 [sym_kDeprecated];
   ACTIONS 9045 [sym_kExperimental; sym_kPlatform; sym_kUnimplemented; sym_kCvar];
   ACTIONS 9060 [sym_kExport]; ACTIONS 9045 [sym_kFar; sym_kNear; sym_kSafecall; sym_kAssembler;
   sym_kNostackframe; sym_kInterrupt; sym_kNoreturn; sym_kIocheck; sym_kLocal; sym_kHardfloat;
   sym_kSoftfloat; sym_kMs_abi_default; sym_kMs_abi_cdecl; sym_kSaveregisters;
   sym_kSysv_abi_default; sym_kSysv_abi_cdecl; sym_kVectorcall; sym_kVarargs; sym_kWinapi];
   ACTIONS 9063 [sym_kAlias]; ACTIONS 9038 [sym_kAsm; sym_kBegin; sym_kCase; sym_kClass;
   sym_kConst; sym_kConstructor; sym_kDestructor; sym_kExports; sym_kFor; sym_kFunction;
   sym_kGoto; sym_kIf; sym_kInherited]; ACTIONS 1016 [sym_kInline]; ACTIONS 9038 [sym_kLabel;
   sym_kNil; sym_kNot; sym_kProcedure; sym_kProperty; sym_kRaise; sym_kRepeat;
   sym_kResourcestring; sym_kString; sym_kThreadvar; sym_kTry; sym_kType; sym_kUses; sym_kVar;
   sym_kWhile; sym_kWith]].

(** State 930. *)
Definition ts_parse_table_930 : parse_row :=
  [STATE 1266 [sym__procAttribute]; STATE 15237 [sym_procAttribute];
   STATE 912 [aux_sym_declProcFwd_repeat1]; ACTIONS 9066 [anon_sym_SEMI; anon_sym_COMMA];
   ACTIONS 9068 [anon_sym_LBRACK]; ACTIONS 9071 [anon_sym_LPAREN];
   ACTIONS 9066 [aux_sym__literalString_token1; anon_sym_POUND];
   ACTIONS 9071 [aux_sym__literalInt_token1]; ACTIONS 9066 [aux_sym__literalInt_token2;
   aux_sym__literalInt_token3]; ACTIONS 9071 [aux_sym__literalFloat_token1];
   ACTIONS 9066 [aux_sym_ppUsesBlock_token1; aux_sym_ppUsesBlock_token2;
   aux_sym_ppUsesBlock_token3]; ACTIONS 9071 [sym_kAdd; sym_kSub]; ACTIONS 9066 [sym_kAt;
   sym_kTrue; sym_kFalse]; ACTIONS 3 [sym__space]; ACTIONS 5 [sym_ppDirective];
   ACTIONS 3 [sym_comment]; ACTIONS 9066 [sym_ppFragmentExpr; sym__literalStringMultiline;
   sym_identifier]; ACTIONS 9073 [sym_kDefault; sym_kNodefault]; ACTIONS 9076 [sym_kDispId];
   ACTIONS 9066 [sym_kGeneric; sym_kSpecialize; sym_kOperator]; ACTIONS 9079 [sym_kPublic];
   ACTIONS 9073 [sym_kStatic; sym_kVirtual; sym_kAbstract; sym_kDynamic; sym_kOverride;
   sym_kOverload; sym_kReintroduce; sym_kStdcall; sym_kCdecl; sym_kCppdecl; sym_kPascal;
   sym_kRegister; sym_kMwpascal]; ACTIONS 9082 [sym_kMessage]; ACTIONS 9085 [sym_kDeprecated];
   ACTIONS 9073 [sym_kExperimental; sym_kPlatform; sym_kUnimplemented; sym_kCvar];
   ACTIONS 9088 [sym_kExport]; ACTIONS 9073 [sym_kFar; sym_kNear; sym_kSafecall; sym_kAssembler;
   sym_kNostackframe; sym_kInterrupt; sym_kNoreturn; sym_kIocheck; sym_kLocal; sym_kHardfloat;
   sym_kSoftfloat; sym_kMs_abi_default; sym_kMs_abi_cdecl; sym_kSaveregisters;
   sym_kSysv_abi_default; sym_kSysv_abi_cdecl; sym_kVectorcall; sym_kVarargs; sym_kWinapi];
   ACTIONS 9091 [sym_kAlias]; ACTIONS 9066 [sym_kAsm; sym_kBegin; sym_kCase; sym_kClass;
   sym_kConst; sym_kConstructor; sym_kDestructor; sym_kExports; sym_kFor; sym_kFunction;
   sym_kGoto; sym_kIf; sym_kInherited]; ACTIONS 1016 [sym_kInline]; ACTIONS 9066 [sym_kLabel;
   sym_kNil; sym_kNot; sym_kProcedure; sym_kProperty; sym_kRaise; sym_kRepeat;
   sym_kResourcestring; sym_kString; sym_kThreadvar; sym_kTry; sym_kType; sym_kUses; sym_kVar;
   sym_kWhile; sym_kWith]].

(** State 931. *)
Definition ts_parse_table_931 : parse_row :=
  [STATE 1266 [sym__procAttribute]; STATE 15237 [sym_procAttribute];
   STATE 912 [aux_sym_declProcFwd_repeat1]; ACTIONS 9094 [anon_sym_SEMI; anon_sym_COMMA];
   ACTIONS 9096 [anon_sym_LBRACK]; ACTIONS 9099 [anon_sym_LPAREN];
   ACTIONS 9094 [aux_sym__literalString_token1; anon_sym_POUND];
   ACTIONS 9099 [aux_sym__literalInt_token1]; ACTIONS 9094 [aux_sym__literalInt_token2;
   aux_sym__literalInt_token3]; ACTIONS 9099 [aux_sym__literalFloat_token1];
   ACTIONS 9094 [aux_sym_ppUsesBlock_token1; aux_sym_ppUsesBlock_token2;
   aux_sym_ppUsesBlock_token3]; ACTIONS 9099 [sym_kAdd; sym_kSub]; ACTIONS 9094 [sym_kAt;
   sym_kTrue; sym_kFalse]; ACTIONS 3 [sym__space]; ACTIONS 5 [sym_ppDirective];
   ACTIONS 3 [sym_comment]; ACTIONS 9094 [sym_ppFragmentExpr; sym__literalStringMultiline;
   sym_identifier]; ACTIONS 9101 [sym_kDefault; sym_kNodefault]; ACTIONS 9104 [sym_kDispId];
   ACTIONS 9094 [sym_kGeneric; sym_kSpecialize; sym_kOperator]; ACTIONS 9107 [sym_kPublic];
   ACTIONS 9101 [sym_kStatic; sym_kVirtual; sym_kAbstract; sym_kDynamic; sym_kOverride;
   sym_kOverload; sym_kReintroduce; sym_kStdcall; sym_kCdecl; sym_kCppdecl; sym_kPascal;
   sym_kRegister; sym_kMwpascal]; ACTIONS 9110 [sym_kMessage]; ACTIONS 9113 [sym_kDeprecated];
   ACTIONS 9101 [sym_kExperimental; sym_kPlatform; sym_kUnimplemented; sym_kCvar];
   ACTIONS 9116 [sym_kExport]; ACTIONS 9101 [sym_kFar; sym_kNear; sym_kSafecall; sym_kAssembler;
   sym_kNostackframe; sym_kInterrupt; sym_kNoreturn; sym_kIocheck; sym_kLocal; sym_kHardfloat;
   sym_kSoftfloat; sym_kMs_abi_default; sym_kMs_abi_cdecl; sym_kSaveregisters;
   sym_kSysv_abi_default; sym_kSysv_abi_cdecl; sym_kVectorcall; sym_kVarargs; sym_kWinapi];
   ACTIONS 9119 [sym_kAlias]; ACTIONS 9094 [sym_kAsm; sym_kBegin; sym_kCase; sym_kClass;
   sym_kConst; sym_kConstructor; sym_kDestructor; sym_kExports; sym_kFor; sym_kFunction;
   sym_kGoto; sym_kIf; sym_kInherited]; ACTIONS 1016 [sym_kInline]; ACTIONS 9094 [sym_kLabel;
   sym_kNil; sym_kNot; sym_kProcedure; sym_kProperty; sym_kRaise; sym_kRepeat;
   sym_kResourcestring; sym_kString; sym_kThreadvar; sym_kTry; sym_kType; sym_kUses; sym_kVar;
   sym_kWhile; sym_kWith]].

(** State 932. *)
Definition ts_parse_table_932 : parse_row :=
  [STATE 1266 [sym__procAttribute]; STATE 15237 [sym_procAttribute];
   STATE 961 [aux_sym_declProcFwd_repeat1]; ACTIONS 9122 [anon_sym_SEMI; anon_sym_COMMA];
   ACTIONS 9124 [anon_sym_LBRACK]; ACTIONS 9127 [anon_sym_LPAREN];
   ACTIONS 9122 [aux_sym__literalString_token1; anon_sym_POUND];
   ACTIONS 9127 [aux_sym__literalInt_token1]; ACTIONS 9122 [aux_sym__literalInt_token2;
   aux_sym__literalInt_token3]; ACTIONS 9127 [aux_sym__literalFloat_token1];
   ACTIONS 9122 [aux_sym_ppUsesBlock_token1; aux_sym_ppUsesBlock_token2;
   aux_sym_ppUsesBlock_token3]; ACTIONS 9127 [sym_kAdd; sym_kSub]; ACTIONS 9122 [sym_kAt;
   sym_kTrue; sym_kFalse]; ACTIONS 3 [sym__space]; ACTIONS 5 [sym_ppDirective];
   ACTIONS 3 [sym_comment]; ACTIONS 9122 [sym_ppFragmentExpr; sym__literalStringMultiline;
   sym_identifier]; ACTIONS 9129 [sym_kDefault; sym_kNodefault]; ACTIONS 9132 [sym_kDispId];
   ACTIONS 9122 [sym_kGeneric; sym_kSpecialize; sym_kOperator]; ACTIONS 9135 [sym_kPublic];
   ACTIONS 9129 [sym_kStatic; sym_kVirtual; sym_kAbstract; sym_kDynamic; sym_kOverride;
   sym_kOverload; sym_kReintroduce; sym_kStdcall; sym_kCdecl; sym_kCppdecl; sym_kPascal;
   sym_kRegister; sym_kMwpascal]; ACTIONS 9138 [sym_kMessage]; ACTIONS 9141 [sym_kDeprecated];
   ACTIONS 9129 [sym_kExperimental; sym_kPlatform; sym_kUnimplemented; sym_kCvar];
   ACTIONS 9144 [sym_kExport]; ACTIONS 9129 [sym_kFar; sym_kNear; sym_kSafecall; sym_kAssembler;
   sym_kNostackframe; sym_kInterrupt; sym_kNoreturn; sym_kIocheck; sym_kLocal; sym_kHardfloat;
   sym_kSoftfloat; sym_kMs_abi_default; sym_kMs_abi_cdecl; sym_kSaveregisters;
   sym_kSysv_abi_default; sym_kSysv_abi_cdecl; sym_kVectorcall; sym_kVarargs; sym_kWinapi];
   ACTIONS 9147 [sym_kAlias]; ACTIONS 9122 [sym_kAsm; sym_kBegin; sym_kCase; sym_kClass;
   sym_kConst; sym_kConstructor; sym_kDestructor; sym_kExports; sym_kFor; sym_kFunction;
   sym_kGoto; sym_kIf; sym_kInherited]; ACTIONS 1016 [sym_kInline]; ACTIONS 9122 [sym_kLabel;
   sym_kNil; sym_kNot; sym_kProcedure; sym_kProperty; sym_kRaise; sym_kRepeat;
   sym_kResourcestring; sym_kString; sym_kThreadvar; sym_kTry; sym_kType; sym_kUses; sym_kVar;
   sym_kWhile; sym_kWith]].

(** State 933. *)
Definition ts_parse_table_933 : parse_row :=
  [STATE 1266 [sym__procAttribute]; STATE 15237 [sym_procAttribute];
   STATE 962 [aux_sym_declProcFwd_repeat1]; ACTIONS 9150 [anon_sym_SEMI; anon_sym_COMMA];
   ACTIONS 9152 [anon_sym_LBRACK]; ACTIONS 9155 [anon_sym_LPAREN];
   ACTIONS 9150 [aux_sym__literalString_token1; anon_sym_POUND];
   ACTIONS 9155 [aux_sym__literalInt_token1]; ACTIONS 9150 [aux_sym__literalInt_token2;
   aux_sym__literalInt_token3]; ACTIONS 9155 [aux_sym__literalFloat_token1];
   ACTIONS 9150 [aux_sym_ppUsesBlock_token1; aux_sym_ppUsesBlock_token2;
   aux_sym_ppUsesBlock_token3]; ACTIONS 9155 [sym_kAdd; sym_kSub]; ACTIONS 9150 [sym_kAt;
   sym_kTrue; sym_kFalse]; ACTIONS 3 [sym__space]; ACTIONS 5 [sym_ppDirective];
   ACTIONS 3 [sym_comment]; ACTIONS 9150 [sym_ppFragmentExpr; sym__literalStringMultiline;
   sym_identifier]; ACTIONS 9157 [sym_kDefault; sym_kNodefault]; ACTIONS 9160 [sym_kDispId];
   ACTIONS 9150 [sym_kGeneric; sym_kSpecialize; sym_kOperator]; ACTIONS 9163 [sym_kPublic];
   ACTIONS 9157 [sym_kStatic; sym_kVirtual; sym_kAbstract; sym_kDynamic; sym_kOverride;
   sym_kOverload; sym_kReintroduce; sym_kStdcall; sym_kCdecl; sym_kCppdecl; sym_kPascal;
   sym_kRegister; sym_kMwpascal]; ACTIONS 9166 [sym_kMessage]; ACTIONS 9169 [sym_kDeprecated];
   ACTIONS 9157 [sym_kExperimental; sym_kPlatform; sym_kUnimplemented; sym_kCvar];
   ACTIONS 9172 [sym_kExport]; ACTIONS 9157 [sym_kFar; sym_kNear; sym_kSafecall; sym_kAssembler;
   sym_kNostackframe; sym_kInterrupt; sym_kNoreturn; sym_kIocheck; sym_kLocal; sym_kHardfloat;
   sym_kSoftfloat; sym_kMs_abi_default; sym_kMs_abi_cdecl; sym_kSaveregisters;
   sym_kSysv_abi_default; sym_kSysv_abi_cdecl; sym_kVectorcall; sym_kVarargs; sym_kWinapi];
   ACTIONS 9175 [sym_kAlias]; ACTIONS 9150 [sym_kAsm; sym_kBegin; sym_kCase; sym_kClass;
   sym_kConst; sym_kConstructor; sym_kDestructor; sym_kExports; sym_kFor; sym_kFunction;
   sym_kGoto; sym_kIf; sym_kInherited]; ACTIONS 1016 [sym_kInline]; ACTIONS 9150 [sym_kLabel;
   sym_kNil; sym_kNot; sym_kProcedure; sym_kProperty; sym_kRaise; sym_kRepeat;
   sym_kResourcestring; sym_kString; sym_kThreadvar; sym_kTry; sym_kType; sym_kUses; sym_kVar;
   sym_kWhile; sym_kWith]].

(** State 934. *)
Definition ts_parse_table_934 : parse_row :=
  [STATE 1266 [sym__procAttribute]; STATE 15237 [sym_procAttribute];
   STATE 912 [aux_sym_declProcFwd_repeat1]; ACTIONS 9178 [anon_sym_SEMI; anon_sym_COMMA];
   ACTIONS 9180 [anon_sym_LBRACK]; ACTIONS 9183 [anon_sym_LPAREN];
   ACTIONS 9178 [aux_sym__literalString_token1; anon_sym_POUND];
   ACTIONS 9183 [aux_sym__literalInt_token1]; ACTIONS 9178 [aux_sym__literalInt_token2;
   aux_sym__literalInt_token3]; ACTIONS 9183 [aux_sym__literalFloat_token1];
   ACTIONS 9178 [aux_sym_ppUsesBlock_token1; aux_sym_ppUsesBlock_token2;
   aux_sym_ppUsesBlock_token3]; ACTIONS 9183 [sym_kAdd; sym_kSub]; ACTIONS 9178 [sym_kAt;
   sym_kTrue; sym_kFalse]; ACTIONS 3 [sym__space]; ACTIONS 5 [sym_ppDirective];
   ACTIONS 3 [sym_comment]; ACTIONS 9178 [sym_ppFragmentExpr; sym__literalStringMultiline;
   sym_identifier]; ACTIONS 9185 [sym_kDefault; sym_kNodefault]; ACTIONS 9188 [sym_kDispId];
   ACTIONS 9178 [sym_kGeneric; sym_kSpecialize; sym_kOperator]; ACTIONS 9191 [sym_kPublic];
   ACTIONS 9185 [sym_kStatic; sym_kVirtual; sym_kAbstract; sym_kDynamic; sym_kOverride;
   sym_kOverload; sym_kReintroduce; sym_kStdcall; sym_kCdecl; sym_kCppdecl; sym_kPascal;
   sym_kRegister; sym_kMwpascal]; ACTIONS 9194 [sym_kMessage]; ACTIONS 9197 [sym_kDeprecated];
   ACTIONS 9185 [sym_kExperimental; sym_kPlatform; sym_kUnimplemented; sym_kCvar];
   ACTIONS 9200 [sym_kExport]; ACTIONS 9185 [sym_kFar; sym_kNear; sym_kSafecall; sym_kAssembler;
   sym_kNostackframe; sym_kInterrupt; sym_kNoreturn; sym_kIocheck; sym_kLocal; sym_kHardfloat;
   sym_kSoftfloat; sym_kMs_abi_default; sym_kMs_abi_cdecl; sym_kSaveregisters;
   sym_kSysv_abi_default; sym_kSysv_abi_cdecl; sym_kVectorcall; sym_kVarargs; sym_kWinapi];
   ACTIONS 9203 [sym_kAlias]; ACTIONS 9178 [sym_kAsm; sym_kBegin; sym_kCase; sym_kClass;
   sym_kConst; sym_kConstructor; sym_kDestructor; sym_kExports; sym_kFor; sym_kFunction;
   sym_kGoto; sym_kIf; sym_kInherited]; ACTIONS 1016 [sym_kInline]; ACTIONS 9178 [sym_kLabel;
   sym_kNil; sym_kNot; sym_kProcedure; sym_kProperty; sym_kRaise; sym_kRepeat;
   sym_kResourcestring; sym_kString; sym_kThreadvar; sym_kTry; sym_kType; sym_kUses; sym_kVar;
   sym_kWhile; sym_kWith]].

(** State 935. *)
Definition ts_parse_table_935 : parse_row :=
  [STATE 1266 [sym__procAttribute]; STATE 15237 [sym_procAttribute];
   STATE 912 [aux_sym_declProcFwd_repeat1]; ACTIONS 9206 [anon_sym_SEMI; anon_sym_COMMA];
   ACTIONS 9208 [anon_sym_LBRACK]; ACTIONS 9211 [anon_sym_LPAREN];
   ACTIONS 9206 [aux_sym__literalString_token1; anon_sym_POUND];
   ACTIONS 9211 [aux_sym__literalInt_token1]; ACTIONS 9206 [aux_sym__literalInt_token2;
   aux_sym__literalInt_token3]; ACTIONS 9211 [aux_sym__literalFloat_token1];
   ACTIONS 9206 [aux_sym_ppUsesBlock_token1; aux_sym_ppUsesBlock_token2;
   aux_sym_ppUsesBlock_token3]; ACTIONS 9211 [sym_kAdd; sym_kSub]; ACTIONS 9206 [sym_kAt;
   sym_kTrue; sym_kFalse]; ACTIONS 3 [sym__space]; ACTIONS 5 [sym_ppDirective];
   ACTIONS 3 [sym_comment]; ACTIONS 9206 [sym_ppFragmentExpr; sym__literalStringMultiline;
   sym_identifier]; ACTIONS 9213 [sym_kDefault; sym_kNodefault]; ACTIONS 9216 [sym_kDispId];
   ACTIONS 9206 [sym_kGeneric; sym_kSpecialize; sym_kOperator]; ACTIONS 9219 [sym_kPublic];
   ACTIONS 9213 [sym_kStatic; sym_kVirtual; sym_kAbstract; sym_kDynamic; sym_kOverride;
   sym_kOverload; sym_kReintroduce; sym_kStdcall; sym_kCdecl; sym_kCppdecl; sym_kPascal;
   sym_kRegister; sym_kMwpascal]; ACTIONS 9222 [sym_kMessage]; ACTIONS 9225 [sym_kDeprecated];
   ACTIONS 9213 [sym_kExperimental; sym_kPlatform; sym_kUnimplemented; sym_kCvar];
   ACTIONS 9228 [sym_kExport]; ACTIONS 9213 [sym_kFar; sym_kNear; sym_kSafecall; sym_kAssembler;
   sym_kNostackframe; sym_kInterrupt; sym_kNoreturn; sym_kIocheck; sym_kLocal; sym_kHardfloat;
   sym_kSoftfloat; sym_kMs_abi_default; sym_kMs_abi_cdecl; sym_kSaveregisters;
   sym_kSysv_abi_default; sym_kSysv_abi_cdecl; sym_kVectorcall; sym_kVarargs; sym_kWinapi];
   ACTIONS 9231 [sym_kAlias]; ACTIONS 9206 [sym_kAsm; sym_kBegin; sym_kCase; sym_kClass;
   sym_kConst; sym_kConstructor; sym_kDestructor; sym_kExports; sym_kFor; sym_kFunction;
   sym_kGoto; sym_kIf; sym_kInherited]; ACTIONS 1016 [sym_kInline]; ACTIONS 9206 [sym_kLabel;
   sym_kNil; sym_kNot; sym_kProcedure; sym_kProperty; sym_kRaise; sym_kRepeat;
   sym_kResourcestring; sym_kString; sym_kThreadvar; sym_kTry; sym_kType; sym_kUses; sym_kVar;
   sym_kWhile; sym_kWith]].

(** State 936. *)
Definition ts_parse_table_936 : parse_row :=
  [STATE 1266 [sym__procAttribute]; STATE 15237 [sym_procAttribute];
   STATE 864 [aux_sym_declProcFwd_repeat1]; ACTIONS 9234 [anon_sym_SEMI; anon_sym_COMMA];
   ACTIONS 9236 [anon_sym_LBRACK]; ACTIONS 9239 [anon_sym_LPAREN];
   ACTIONS 9234 [aux_sym__literalString_token1; anon_sym_POUND];
   ACTIONS 9239 [aux_sym__literalInt_token1]; ACTIONS 9234 [aux_sym__literalInt_token2;
   aux_sym__literalInt_token3]; ACTIONS 9239 [aux_sym__literalFloat_token1];
   ACTIONS 9234 [aux_sym_ppUsesBlock_token1; aux_sym_ppUsesBlock_token2;
   aux_sym_ppUsesBlock_token3]; ACTIONS 9239 [sym_kAdd; sym_kSub]; ACTIONS 9234 [sym_kAt;
   sym_kTrue; sym_kFalse]; ACTIONS 3 [sym__space]; ACTIONS 5 [sym_ppDirective];
   ACTIONS 3 [sym_comment]; ACTIONS 9234 [sym_ppFragmentExpr; sym__literalStringMultiline;
   sym_identifier]; ACTIONS 9241 [sym_kDefault; sym_kNodefault]; ACTIONS 9244 [sym_kDispId];
   ACTIONS 9234 [sym_kGeneric; sym_kSpecialize; sym_kOperator]; ACTIONS 9247 [sym_kPublic];
   ACTIONS 9241 [sym_kStatic; sym_kVirtual; sym_kAbstract; sym_kDynamic; sym_kOverride;
   sym_kOverload; sym_kReintroduce; sym_kStdcall; sym_kCdecl; sym_kCppdecl; sym_kPascal;
   sym_kRegister; sym_kMwpascal]; ACTIONS 9250 [sym_kMessage]; ACTIONS 9253 [sym_kDeprecated];
   ACTIONS 9241 [sym_kExperimental; sym_kPlatform; sym_kUnimplemented; sym_kCvar];
   ACTIONS 9256 [sym_kExport]; ACTIONS 9241 [sym_kFar; sym_kNear; sym_kSafecall; sym_kAssembler;
   sym_kNostackframe; sym_kInterrupt; sym_kNoreturn; sym_kIocheck; sym_kLocal; sym_kHardfloat;
   sym_kSoftfloat; sym_kMs_abi_default; sym_kMs_abi_cdecl; sym_kSaveregisters;
   sym_kSysv_abi_default; sym_kSysv_abi_cdecl; sym_kVectorcall; sym_kVarargs; sym_kWinapi];
   ACTIONS 9259 [sym_kAlias]; ACTIONS 9234 [sym_kAsm; sym_kBegin; sym_kCase; sym_kClass;
   sym_kConst; sym_kConstructor; sym_kDestructor; sym_kExports; sym_kFor; sym_kFunction;
   sym_kGoto; sym_kIf; sym_kInherited]; ACTIONS 1016 [sym_kInline]; ACTIONS 9234 [sym_kLabel;
   sym_kNil; sym_kNot; sym_kProcedure; sym_kProperty; sym_kRaise; sym_kRepeat;
   sym_kResourcestring; sym_kString; sym_kThreadvar; sym_kTry; sym_kType; sym_kUses; sym_kVar;
   sym_kWhile; sym_kWith]].

(** State 937. *)
Definition ts_parse_table_937 : parse_row :=
  [STATE 1266 [sym__procAttribute]; STATE 15237 [sym_procAttribute];
   STATE 872 [aux_sym_declProcFwd_repeat1]; ACTIONS 9262 [anon_sym_SEMI; anon_sym_COMMA];
   ACTIONS 9264 [anon_sym_LBRACK]; ACTIONS 9267 [anon_sym_LPAREN];
   ACTIONS 9262 [aux_sym__literalString_token1; anon_sym_POUND];
   ACTIONS 9267 [aux_sym__literalInt_token1]; ACTIONS 9262 [aux_sym__literalInt_token2;
   aux_sym__literalInt_token3]; ACTIONS 9267 [aux_sym__literalFloat_token1];
   ACTIONS 9262 [aux_sym_ppUsesBlock_token1; aux_sym_ppUsesBlock_token2;
   aux_sym_ppUsesBlock_token3]; ACTIONS 9267 [sym_kAdd; sym_kSub]; ACTIONS 9262 [sym_kAt;
   sym_kTrue; sym_kFalse]; ACTIONS 3 [sym__space]; ACTIONS 5 [sym_ppDirective];
   ACTIONS 3 [sym_comment]; ACTIONS 9262 [sym_ppFragmentExpr; sym__literalStringMultiline;
   sym_identifier]; ACTIONS 9269 [sym_kDefault; sym_kNodefault]; ACTIONS 9272 [sym_kDispId];
   ACTIONS 9262 [sym_kGeneric; sym_kSpecialize; sym_kOperator]; ACTIONS 9275 [sym_kPublic];
   ACTIONS 9269 [sym_kStatic; sym_kVirtual; sym_kAbstract; sym_kDynamic; sym_kOverride;
   sym_kOverload; sym_kReintroduce; sym_kStdcall; sym_kCdecl; sym_kCppdecl; sym_kPascal;
   sym_kRegister; sym_kMwpascal]; ACTIONS 9278 [sym_kMessage]; ACTIONS 9281 [sym_kDeprecated];
   ACTIONS 9269 [sym_kExperimental; sym_kPlatform; sym_kUnimplemented; sym_kCvar];
   ACTIONS 9284 [sym_kExport]; ACTIONS 9269 [sym_kFar; sym_kNear; sym_kSafecall; sym_kAssembler;
   sym_kNostackframe; sym_kInterrupt; sym_kNoreturn; sym_kIocheck; sym_kLocal; sym_kHardfloat;
   sym_kSoftfloat; sym_kMs_abi_default; sym_kMs_abi_cdecl; sym_kSaveregisters;
   sym_kSysv_abi_default; sym_kSysv_abi_cdecl; sym_kVectorcall; sym_kVarargs; sym_kWinapi];
   ACTIONS 9287 [sym_kAlias]; ACTIONS 9262 [sym_kAsm; sym_kBegin; sym_kCase; sym_kClass;
   sym_kConst; sym_kConstructor; sym_kDestructor; sym_kExports; sym_kFor; sym_kFunction;
   sym_kGoto; sym_kIf; sym_kInherited]; ACTIONS 1016 [sym_kInline]; ACTIONS 9262 [sym_kLabel;
   sym_kNil; sym_kNot; sym_kProcedure; sym_kProperty; sym_kRaise; sym_kRepeat;
   sym_kResourcestring; sym_kString; sym_kThreadvar; sym_kTry; sym_kType; sym_kUses; sym_kVar;
   sym_kWhile; sym_kWith]].

(** State 938. *)
Definition ts_parse_table_938 : parse_row :=
  [STATE 1266 [sym__procAttribute]; STATE 15237 [sym_procAttribute];
   STATE 912 [aux_sym_declProcFwd_repeat1]; ACTIONS 9290 [anon_sym_SEMI; anon_sym_COMMA];
   ACTIONS 9292 [anon_sym_LBRACK]; ACTIONS 9295 [anon_sym_LPAREN];
   ACTIONS 9290 [aux_sym__literalString_token1; anon_sym_POUND];
   ACTIONS 9295 [aux_sym__literalInt_token1]; ACTIONS 9290 [aux_sym__literalInt_token2;
   aux_sym__literalInt_token3]; ACTIONS 9295 [aux_sym__literalFloat_token1];
   ACTIONS 9290 [aux_sym_ppUsesBlock_token1; aux_sym_ppUsesBlock_token2;
   aux_sym_ppUsesBlock_token3]; ACTIONS 9295 [sym_kAdd; sym_kSub]; ACTIONS 9290 [sym_kAt;
   sym_kTrue; sym_kFalse]; ACTIONS 3 [sym__space]; ACTIONS 5 [sym_ppDirective];
   ACTIONS 3 [sym_comment]; ACTIONS 9290 [sym_ppFragmentExpr; sym__literalStringMultiline;
   sym_identifier]; ACTIONS 9297 [sym_kDefault; sym_kNodefault]; ACTIONS 9300 [sym_kDispId];
   ACTIONS 9290 [sym_kGeneric; sym_kSpecialize; sym_kOperator]; ACTIONS 9303 [sym_kPublic];
   ACTIONS 9297 [sym_kStatic; sym_kVirtual; sym_kAbstract; sym_kDynamic; sym_kOverride;
   sym_kOverload; sym_kReintroduce; sym_kStdcall; sym_kCdecl; sym_kCppdecl; sym_kPascal;
   sym_kRegister; sym_kMwpascal]; ACTIONS 9306 [sym_kMessage]; ACTIONS 9309 [sym_kDeprecated];
   ACTIONS 9297 [sym_kExperimental; sym_kPlatform; sym_kUnimplemented; sym_kCvar];
   ACTIONS 9312 [sym_kExport]; ACTIONS 9297 [sym_kFar; sym_kNear; sym_kSafecall; sym_kAssembler;
   sym_kNostackframe; sym_kInterrupt; sym_kNoreturn; sym_kIocheck; sym_kLocal; sym_kHardfloat;
   sym_kSoftfloat; sym_kMs_abi_default; sym_kMs_abi_cdecl; sym_kSaveregisters;
   sym_kSysv_abi_default; sym_kSysv_abi_cdecl; sym_kVectorcall; sym_kVarargs; sym_kWinapi];
   ACTIONS 9315 [sym_kAlias]; ACTIONS 9290 [sym_kAsm; sym_kBegin; sym_kCase; sym_kClass;
   sym_kConst; sym_kConstructor; sym_kDestructor; sym_kExports; sym_kFor; sym_kFunction;
   sym_kGoto; sym_kIf; sym_kInherited]; ACTIONS 1016 [sym_kInline]; ACTIONS 9290 [sym_kLabel;
   sym_kNil; sym_kNot; sym_kProcedure; sym_kProperty; sym_kRaise; sym_kRepeat;
   sym_kResourcestring; sym_kString; sym_kThreadvar; sym_kTry; sym_kType; sym_kUses; sym_kVar;
   sym_kWhile; sym_kWith]].

(** State 939. *)
Definition ts_parse_table_939 : parse_row :=
  [STATE 9369 [sym_if]; STATE 9358 [sym_ifElse; sym_while; sym_repeat; sym_for; sym_foreach;
   sym_try; sym_case; sym_block; sym_asm; sym_with; sym_raise; sym_statement; sym_goto;
   sym_labeledStatement; sym__statement]; STATE 12816 [sym_ifTr; sym_ifElseTr; sym_whileTr;
   sym_repeatTr; sym_forTr; sym_foreachTr; sym_tryTr; sym_caseTr]; STATE 12901 [sym_blockTr];
   STATE 12816 [sym_asmTr; sym_withTr; sym_raiseTr; sym_statementTr; sym_gotoTr;
   sym_labeledStatementTr; sym__statementTr]; STATE 12334 [sym_assignment];
   STATE 11914 [sym_varAssignDef]; STATE 12334 [sym_varDef; sym_constDef];
   STATE 1029 [sym_label]; STATE 7739 [sym__expr; sym_exprConditional]; STATE 7138 [sym__ref;
   sym_lambda; sym_inherited; sym_exprDot; sym_exprDeref; sym_exprAs; sym_exprTpl;
   sym_exprSubscript; sym_exprCall]; STATE 7739 [sym_exprBinary; sym_exprUnary];
   STATE 7138 [sym_exprParens; sym_exprBrackets; sym__literal; sym_literalString];
   STATE 6388 [sym__literalString; sym_literalChar]; STATE 7138 [sym_literalNumber];
   STATE 7299 [sym__literalInt; sym__literalFloat]; STATE 6388 [aux_sym_literalString_repeat1];
   ACTIONS 9318 [anon_sym_SEMI]; ACTIONS 7968 [anon_sym_LBRACK]; ACTIONS 7970 [anon_sym_LPAREN];
   ACTIONS 7972 [aux_sym__literalString_token1]; ACTIONS 7974 [anon_sym_POUND];
   ACTIONS 7976 [aux_sym__literalInt_token1]; ACTIONS 7978 [aux_sym__literalInt_token2;
   aux_sym__literalInt_token3]; ACTIONS 7976 [aux_sym__literalFloat_token1];
   ACTIONS 7980 [sym_kAdd; sym_kSub]; ACTIONS 7982 [sym_kAt]; ACTIONS 7984 [sym_kTrue;
   sym_kFalse]; ACTIONS 7986 [sym_labelNumber]; ACTIONS 3 [sym__space];
   ACTIONS 5 [sym_ppDirective]; ACTIONS 3 [sym_comment]; ACTIONS 7984 [sym_ppFragmentExpr];
   ACTIONS 7972 [sym__literalStringMultiline]; ACTIONS 7988 [sym_identifier];
   ACTIONS 7990 [sym_kSpecialize]; ACTIONS 3230 [sym_kOtherwise]; ACTIONS 7994 [sym_kAsm];
   ACTIONS 7996 [sym_kBegin]; ACTIONS 7998 [sym_kCase]; ACTIONS 8000 [sym_kConst];
   ACTIONS 9320 [sym_kElse]; ACTIONS 3230 [sym_kEnd]; ACTIONS 8002 [sym_kFor];
   ACTIONS 8004 [sym_kFunction]; ACTIONS 8006 [sym_kGoto]; ACTIONS 8008 [sym_kIf];
   ACTIONS 8010 [sym_kInherited]; ACTIONS 7984 [sym_kNil]; ACTIONS 7982 [sym_kNot];
   ACTIONS 8004 [sym_kProcedure]; ACTIONS 8012 [sym_kRaise]; ACTIONS 8014 [sym_kRepeat];
   ACTIONS 8016 [sym_kString]; ACTIONS 8018 [sym_kTry]; ACTIONS 8020 [sym_kVar];
   ACTIONS 8022 [sym_kWhile]; ACTIONS 8024 [sym_kWith]].

(** State 940. *)
Definition ts_parse_table_940 : parse_row :=
  [STATE 9071 [sym_if]; STATE 9067 [sym_ifElse; sym_while; sym_repeat; sym_for; sym_foreach;
   sym_try; sym_case; sym_block; sym_asm; sym_with; sym_raise; sym_statement; sym_goto;
   sym_labeledStatement; sym__statement]; STATE 12501 [sym_ifTr; sym_ifElseTr; sym_whileTr;
   sym_repeatTr; sym_forTr; sym_foreachTr; sym_tryTr; sym_caseTr]; STATE 12901 [sym_blockTr];
   STATE 12501 [sym_asmTr; sym_withTr; sym_raiseTr; sym_statementTr; sym_gotoTr;
   sym_labeledStatementTr; sym__statementTr]; STATE 12334 [sym_assignment];
   STATE 11914 [sym_varAssignDef]; STATE 12334 [sym_varDef; sym_constDef];
   STATE 1029 [sym_label]; STATE 7768 [sym__expr; sym_exprConditional]; STATE 7138 [sym__ref;
   sym_lambda; sym_inherited; sym_exprDot; sym_exprDeref; sym_exprAs; sym_exprTpl;
   sym_exprSubscript; sym_exprCall]; STATE 7768 [sym_exprBinary; sym_exprUnary];
   STATE 7138 [sym_exprParens; sym_exprBrackets; sym__literal; sym_literalString];
   STATE 6388 [sym__literalString; sym_literalChar]; STATE 7138 [sym_literalNumber];
   STATE 7299 [sym__literalInt; sym__literalFloat]; STATE 6388 [aux_sym_literalString_repeat1];
   ACTIONS 9322 [anon_sym_SEMI]; ACTIONS 7968 [anon_sym_LBRACK]; ACTIONS 7970 [anon_sym_LPAREN];
   ACTIONS 7972 [aux_sym__literalString_token1]; ACTIONS 7974 [anon_sym_POUND];
   ACTIONS 7976 [aux_sym__literalInt_token1]; ACTIONS 7978 [aux_sym__literalInt_token2;
   aux_sym__literalInt_token3]; ACTIONS 7976 [aux_sym__literalFloat_token1];
   ACTIONS 7980 [sym_kAdd; sym_kSub]; ACTIONS 7982 [sym_kAt]; ACTIONS 7984 [sym_kTrue;
   sym_kFalse]; ACTIONS 7986 [sym_labelNumber]; ACTIONS 3 [sym__space];
   ACTIONS 5 [sym_ppDirective]; ACTIONS 3 [sym_comment]; ACTIONS 7984 [sym_ppFragmentExpr];
   ACTIONS 7972 [sym__literalStringMultiline]; ACTIONS 7988 [sym_identifier];
   ACTIONS 7990 [sym_kSpecialize]; ACTIONS 3272 [sym_kOtherwise]; ACTIONS 7994 [sym_kAsm];
   ACTIONS 7996 [sym_kBegin]; ACTIONS 7998 [sym_kCase]; ACTIONS 8000 [sym_kConst];
   ACTIONS 3272 [sym_kElse; sym_kEnd]; ACTIONS 8002 [sym_kFor]; ACTIONS 8004 [sym_kFunction];
   ACTIONS 8006 [sym_kGoto]; ACTIONS 8008 [sym_kIf]; ACTIONS 8010 [sym_kInherited];
   ACTIONS 7984 [sym_kNil]; ACTIONS 7982 [sym_kNot]; ACTIONS 8004 [sym_kProcedure];
   ACTIONS 8012 [sym_kRaise]; ACTIONS 8014 [sym_kRepeat]; ACTIONS 8016 [sym_kString];
   ACTIONS 8018 [sym_kTry]; ACTIONS 8020 [sym_kVar]; ACTIONS 8022 [sym_kWhile];
   ACTIONS 8024 [sym_kWith]].

(** State 941. *)
Definition ts_parse_table_941 : parse_row :=
  [STATE 9071 [sym_if]; STATE 9068 [sym_ifElse; sym_while; sym_repeat; sym_for; sym_foreach;
   sym_try; sym_case; sym_block; sym_asm; sym_with; sym_raise; sym_statement; sym_goto;
   sym_labeledStatement; sym__statement]; STATE 12502 [sym_ifTr; sym_ifElseTr; sym_whileTr;
   sym_repeatTr; sym_forTr; sym_foreachTr; sym_tryTr; sym_caseTr]; STATE 12901 [sym_blockTr];
   STATE 12502 [sym_asmTr; sym_withTr; sym_raiseTr; sym_statementTr; sym_gotoTr;
   sym_labeledStatementTr; sym__statementTr]; STATE 12334 [sym_assignment];
   STATE 11914 [sym_varAssignDef]; STATE 12334 [sym_varDef; sym_constDef];
   STATE 1029 [sym_label]; STATE 7768 [sym__expr; sym_exprConditional]; STATE 7138 [sym__ref;
   sym_lambda; sym_inherited; sym_exprDot; sym_exprDeref; sym_exprAs; sym_exprTpl;
   sym_exprSubscript; sym_exprCall]; STATE 7768 [sym_exprBinary; sym_exprUnary];
   STATE 7138 [sym_exprParens; sym_exprBrackets; sym__literal; sym_literalString];
   STATE 6388 [sym__literalString; sym_literalChar]; STATE 7138 [sym_literalNumber];
   STATE 7299 [sym__literalInt; sym__literalFloat]; STATE 6388 [aux_sym_literalString_repeat1];
   ACTIONS 9324 [anon_sym_SEMI]; ACTIONS 7968 [anon_sym_LBRACK]; ACTIONS 7970 [anon_sym_LPAREN];
   ACTIONS 7972 [aux_sym__literalString_token1]; ACTIONS 7974 [anon_sym_POUND];
   ACTIONS 7976 [aux_sym__literalInt_token1]; ACTIONS 7978 [aux_sym__literalInt_token2;
   aux_sym__literalInt_token3]; ACTIONS 7976 [aux_sym__literalFloat_token1];
   ACTIONS 7980 [sym_kAdd; sym_kSub]; ACTIONS 7982 [sym_kAt]; ACTIONS 7984 [sym_kTrue;
   sym_kFalse]; ACTIONS 7986 [sym_labelNumber]; ACTIONS 3 [sym__space];
   ACTIONS 5 [sym_ppDirective]; ACTIONS 3 [sym_comment]; ACTIONS 7984 [sym_ppFragmentExpr];
   ACTIONS 7972 [sym__literalStringMultiline]; ACTIONS 7988 [sym_identifier];
   ACTIONS 7990 [sym_kSpecialize]; ACTIONS 3278 [sym_kOtherwise]; ACTIONS 7994 [sym_kAsm];
   ACTIONS 7996 [sym_kBegin]; ACTIONS 7998 [sym_kCase]; ACTIONS 8000 [sym_kConst];
   ACTIONS 3278 [sym_kElse; sym_kEnd]; ACTIONS 8002 [sym_kFor]; ACTIONS 8004 [sym_kFunction];
   ACTIONS 8006 [sym_kGoto]; ACTIONS 8008 [sym_kIf]; ACTIONS 8010 [sym_kInherited];
   ACTIONS 7984 [sym_kNil]; ACTIONS 7982 [sym_kNot]; ACTIONS 8004 [sym_kProcedure];
   ACTIONS 8012 [sym_kRaise]; ACTIONS 8014 [sym_kRepeat]; ACTIONS 8016 [sym_kString];
   ACTIONS 8018 [sym_kTry]; ACTIONS 8020 [sym_kVar]; ACTIONS 8022 [sym_kWhile];
   ACTIONS 8024 [sym_kWith]].

(** State 942. *)
Definition ts_parse_table_942 : parse_row :=
  [STATE 9071 [sym_if]; STATE 9081 [sym_ifElse; sym_while; sym_repeat; sym_for; sym_foreach;
   sym_try; sym_case; sym_block; sym_asm; sym_with; sym_raise; sym_statement; sym_goto;
   sym_labeledStatement; sym__statement]; STATE 12616 [sym_ifTr; sym_ifElseTr; sym_whileTr;
   sym_repeatTr; sym_forTr; sym_foreachTr; sym_tryTr; sym_caseTr]; STATE 12901 [sym_blockTr];
   STATE 12616 [sym_asmTr; sym_withTr; sym_raiseTr; sym_statementTr; sym_gotoTr;
   sym_labeledStatementTr; sym__statementTr]; STATE 12334 [sym_assignment];
   STATE 11914 [sym_varAssignDef]; STATE 12334 [sym_varDef; sym_constDef];
   STATE 1029 [sym_label]; STATE 7768 [sym__expr; sym_exprConditional]; STATE 7138 [sym__ref;
   sym_lambda; sym_inherited; sym_exprDot; sym_exprDeref; sym_exprAs; sym_exprTpl;
   sym_exprSubscript; sym_exprCall]; STATE 7768 [sym_exprBinary; sym_exprUnary];
   STATE 7138 [sym_exprParens; sym_exprBrackets; sym__literal; sym_literalString];
   STATE 6388 [sym__literalString; sym_literalChar]; STATE 7138 [sym_literalNumber];
   STATE 7299 [sym__literalInt; sym__literalFloat]; STATE 6388 [aux_sym_literalString_repeat1];
   ACTIONS 9326 [anon_sym_SEMI]; ACTIONS 7968 [anon_sym_LBRACK]; ACTIONS 7970 [anon_sym_LPAREN];
   ACTIONS 7972 [aux_sym__literalString_token1]; ACTIONS 7974 [anon_sym_POUND];
   ACTIONS 7976 [aux_sym__literalInt_token1]; ACTIONS 7978 [aux_sym__literalInt_token2;
   aux_sym__literalInt_token3]; ACTIONS 7976 [aux_sym__literalFloat_token1];
   ACTIONS 7980 [sym_kAdd; sym_kSub]; ACTIONS 7982 [sym_kAt]; ACTIONS 7984 [sym_kTrue;
   sym_kFalse]; ACTIONS 7986 [sym_labelNumber]; ACTIONS 3 [sym__space];
   ACTIONS 5 [sym_ppDirective]; ACTIONS 3 [sym_comment]; ACTIONS 7984 [sym_ppFragmentExpr];
   ACTIONS 7972 [sym__literalStringMultiline]; ACTIONS 7988 [sym_identifier];
   ACTIONS 7990 [sym_kSpecialize]; ACTIONS 3282 [sym_kOtherwise]; ACTIONS 7994 [sym_kAsm];
   ACTIONS 7996 [sym_kBegin]; ACTIONS 7998 [sym_kCase]; ACTIONS 8000 [sym_kConst];
   ACTIONS 3282 [sym_kElse; sym_kEnd]; ACTIONS 8002 [sym_kFor]; ACTIONS 8004 [sym_kFunction];
   ACTIONS 8006 [sym_kGoto]; ACTIONS 8008 [sym_kIf]; ACTIONS 8010 [sym_kInherited];
   ACTIONS 7984 [sym_kNil]; ACTIONS 7982 [sym_kNot]; ACTIONS 8004 [sym_kProcedure];
   ACTIONS 8012 [sym_kRaise]; ACTIONS 8014 [sym_kRepeat]; ACTIONS 8016 [sym_kString];
   ACTIONS 8018 [sym_kTry]; ACTIONS 8020 [sym_kVar]; ACTIONS 8022 [sym_kWhile];
   ACTIONS 8024 [sym_kWith]].

(** State 943. *)
Definition ts_parse_table_943 : parse_row :=
  [STATE 9071 [sym_if]; STATE 9099 [sym_ifElse; sym_while; sym_repeat; sym_for; sym_foreach;
   sym_try; sym_case; sym_block; sym_asm; sym_with; sym_raise; sym_statement; sym_goto];
   STATE 9098 [sym_labeledStatement]; STATE 9099 [sym__statement]; STATE 12725 [sym_ifTr;
   sym_ifElseTr; sym_whileTr; sym_repeatTr; sym_forTr; sym_foreachTr; sym_tryTr; sym_caseTr];
   STATE 12901 [sym_blockTr]; STATE 12725 [sym_asmTr; sym_withTr; sym_raiseTr; sym_statementTr;
   sym_gotoTr]; STATE 12724 [sym_labeledStatementTr]; STATE 12725 [sym__statementTr];
   STATE 12334 [sym_assignment]; STATE 11914 [sym_varAssignDef]; STATE 12334 [sym_varDef;
   sym_constDef]; STATE 1029 [sym_label]; STATE 7768 [sym__expr; sym_exprConditional];
   STATE 7138 [sym__ref; sym_lambda; sym_inherited; sym_exprDot; sym_exprDeref; sym_exprAs;
   sym_exprTpl; sym_exprSubscript; sym_exprCall]; STATE 7768 [sym_exprBinary; sym_exprUnary];
   STATE 7138 [sym_exprParens; sym_exprBrackets; sym__literal; sym_literalString];
   STATE 6388 [sym__literalString; sym_literalChar]; STATE 7138 [sym_literalNumber];
   STATE 7299 [sym__literalInt; sym__literalFloat]; STATE 6388 [aux_sym_literalString_repeat1];
   ACTIONS 9328 [anon_sym_SEMI]; ACTIONS 7968 [anon_sym_LBRACK]; ACTIONS 7970 [anon_sym_LPAREN];
   ACTIONS 7972 [aux_sym__literalString_token1]; ACTIONS 7974 [anon_sym_POUND];
   ACTIONS 7976 [aux_sym__literalInt_token1]; ACTIONS 7978 [aux_sym__literalInt_token2;
   aux_sym__literalInt_token3]; ACTIONS 7976 [aux_sym__literalFloat_token1];
   ACTIONS 7980 [sym_kAdd; sym_kSub]; ACTIONS 7982 [sym_kAt]; ACTIONS 7984 [sym_kTrue;
   sym_kFalse]; ACTIONS 7986 [sym_labelNumber]; ACTIONS 3 [sym__space];
   ACTIONS 5 [sym_ppDirective]; ACTIONS 3 [sym_comment]; ACTIONS 7984 [sym_ppFragmentExpr];
   ACTIONS 7972 [sym__literalStringMultiline]; ACTIONS 7988 [sym_identifier];
   ACTIONS 7990 [sym_kSpecialize]; ACTIONS 3286 [sym_kOtherwise]; ACTIONS 7994 [sym_kAsm];
   ACTIONS 7996 [sym_kBegin]; ACTIONS 7998 [sym_kCase]; ACTIONS 8000 [sym_kConst];
   ACTIONS 3286 [sym_kElse; sym_kEnd]; ACTIONS 8002 [sym_kFor]; ACTIONS 8004 [sym_kFunction];
   ACTIONS 8006 [sym_kGoto]; ACTIONS 8008 [sym_kIf]; ACTIONS 8010 [sym_kInherited];
   ACTIONS 7984 [sym_kNil]; ACTIONS 7982 [sym_kNot]; ACTIONS 8004 [sym_kProcedure];
   ACTIONS 8012 [sym_kRaise]; ACTIONS 8014 [sym_kRepeat]; ACTIONS 8016 [sym_kString];
   ACTIONS 8018 [sym_kTry]; ACTIONS 8020 [sym_kVar]; ACTIONS 8022 [sym_kWhile];
   ACTIONS 8024 [sym_kWith]].

(** State 944. *)
Definition ts_parse_table_944 : parse_row :=
  [STATE 9071 [sym_if]; STATE 9109 [sym_ifElse; sym_while; sym_repeat; sym_for; sym_foreach;
   sym_try; sym_case; sym_block; sym_asm; sym_with; sym_raise; sym_statement; sym_goto;
   sym_labeledStatement; sym__statement]; STATE 12822 [sym_ifTr; sym_ifElseTr; sym_whileTr;
   sym_repeatTr; sym_forTr; sym_foreachTr; sym_tryTr; sym_caseTr]; STATE 12901 [sym_blockTr];
   STATE 12822 [sym_asmTr; sym_withTr; sym_raiseTr; sym_statementTr; sym_gotoTr;
   sym_labeledStatementTr; sym__statementTr]; STATE 12334 [sym_assignment];
   STATE 11914 [sym_varAssignDef]; STATE 12334 [sym_varDef; sym_constDef];
   STATE 1029 [sym_label]; STATE 7768 [sym__expr; sym_exprConditional]; STATE 7138 [sym__ref;
   sym_lambda; sym_inherited; sym_exprDot; sym_exprDeref; sym_exprAs; sym_exprTpl;
   sym_exprSubscript; sym_exprCall]; STATE 7768 [sym_exprBinary; sym_exprUnary];
   STATE 7138 [sym_exprParens; sym_exprBrackets; sym__literal; sym_literalString];
   STATE 6388 [sym__literalString; sym_literalChar]; STATE 7138 [sym_literalNumber];
   STATE 7299 [sym__literalInt; sym__literalFloat]; STATE 6388 [aux_sym_literalString_repeat1];
   ACTIONS 9330 [anon_sym_SEMI]; ACTIONS 7968 [anon_sym_LBRACK]; ACTIONS 7970 [anon_sym_LPAREN];
   ACTIONS 7972 [aux_sym__literalString_token1]; ACTIONS 7974 [anon_sym_POUND];
   ACTIONS 7976 [aux_sym__literalInt_token1]; ACTIONS 7978 [aux_sym__literalInt_token2;
   aux_sym__literalInt_token3]; ACTIONS 7976 [aux_sym__literalFloat_token1];
   ACTIONS 7980 [sym_kAdd; sym_kSub]; ACTIONS 7982 [sym_kAt]; ACTIONS 7984 [sym_kTrue;
   sym_kFalse]; ACTIONS 7986 [sym_labelNumber]; ACTIONS 3 [sym__space];
   ACTIONS 5 [sym_ppDirective]; ACTIONS 3 [sym_comment]; ACTIONS 7984 [sym_ppFragmentExpr];
   ACTIONS 7972 [sym__literalStringMultiline]; ACTIONS 7988 [sym_identifier];
   ACTIONS 7990 [sym_kSpecialize]; ACTIONS 3290 [sym_kOtherwise]; ACTIONS 7994 [sym_kAsm];
   ACTIONS 7996 [sym_kBegin]; ACTIONS 7998 [sym_kCase]; ACTIONS 8000 [sym_kConst];
   ACTIONS 3290 [sym_kElse; sym_kEnd]; ACTIONS 8002 [sym_kFor]; ACTIONS 8004 [sym_kFunction];
   ACTIONS 8006 [sym_kGoto]; ACTIONS 8008 [sym_kIf]; ACTIONS 8010 [sym_kInherited];
   ACTIONS 7984 [sym_kNil]; ACTIONS 7982 [sym_kNot]; ACTIONS 8004 [sym_kProcedure];
   ACTIONS 8012 [sym_kRaise]; ACTIONS 8014 [sym_kRepeat]; ACTIONS 8016 [sym_kString];
   ACTIONS 8018 [sym_kTry]; ACTIONS 8020 [sym_kVar]; ACTIONS 8022 [sym_kWhile];
   ACTIONS 8024 [sym_kWith]].

(** State 945. *)
Definition ts_parse_table_945 : parse_row :=
  [STATE 9071 [sym_if]; STATE 9117 [sym_ifElse; sym_while; sym_repeat; sym_for; sym_foreach;
   sym_try; sym_case; sym_block; sym_asm; sym_with; sym_raise; sym_statement; sym_goto;
   sym_labeledStatement; sym__statement]; STATE 12827 [sym_ifTr; sym_ifElseTr; sym_whileTr;
   sym_repeatTr; sym_forTr; sym_foreachTr; sym_tryTr; sym_caseTr]; STATE 12901 [sym_blockTr];
   STATE 12827 [sym_asmTr; sym_withTr; sym_raiseTr; sym_statementTr; sym_gotoTr;
   sym_labeledStatementTr; sym__statementTr]; STATE 12334 [sym_assignment];
   STATE 11914 [sym_varAssignDef]; STATE 12334 [sym_varDef; sym_constDef];
   STATE 1029 [sym_label]; STATE 7768 [sym__expr; sym_exprConditional]; STATE 7138 [sym__ref;
   sym_lambda; sym_inherited; sym_exprDot; sym_exprDeref; sym_exprAs; sym_exprTpl;
   sym_exprSubscript; sym_exprCall]; STATE 7768 [sym_exprBinary; sym_exprUnary];
   STATE 7138 [sym_exprParens; sym_exprBrackets; sym__literal; sym_literalString];
   STATE 6388 [sym__literalString; sym_literalChar]; STATE 7138 [sym_literalNumber];
   STATE 7299 [sym__literalInt; sym__literalFloat]; STATE 6388 [aux_sym_literalString_repeat1];
   ACTIONS 9332 [anon_sym_SEMI]; ACTIONS 7968 [anon_sym_LBRACK]; ACTIONS 7970 [anon_sym_LPAREN];
   ACTIONS 7972 [aux_sym__literalString_token1]; ACTIONS 7974 [anon_sym_POUND];
   ACTIONS 7976 [aux_sym__literalInt_token1]; ACTIONS 7978 [aux_sym__literalInt_token2;
   aux_sym__literalInt_token3]; ACTIONS 7976 [aux_sym__literalFloat_token1];
   ACTIONS 7980 [sym_kAdd; sym_kSub]; ACTIONS 7982 [sym_kAt]; ACTIONS 7984 [sym_kTrue;
   sym_kFalse]; ACTIONS 7986 [sym_labelNumber]; ACTIONS 3 [sym__space];
   ACTIONS 5 [sym_ppDirective]; ACTIONS 3 [sym_comment]; ACTIONS 7984 [sym_ppFragmentExpr];
   ACTIONS 7972 [sym__literalStringMultiline]; ACTIONS 7988 [sym_identifier];
   ACTIONS 7990 [sym_kSpecialize]; ACTIONS 3296 [sym_kOtherwise]; ACTIONS 7994 [sym_kAsm];
   ACTIONS 7996 [sym_kBegin]; ACTIONS 7998 [sym_kCase]; ACTIONS 8000 [sym_kConst];
   ACTIONS 3296 [sym_kElse; sym_kEnd]; ACTIONS 8002 [sym_kFor]; ACTIONS 8004 [sym_kFunction];
   ACTIONS 8006 [sym_kGoto]; ACTIONS 8008 [sym_kIf]; ACTIONS 8010 [sym_kInherited];
   ACTIONS 7984 [sym_kNil]; ACTIONS 7982 [sym_kNot]; ACTIONS 8004 [sym_kProcedure];
   ACTIONS 8012 [sym_kRaise]; ACTIONS 8014 [sym_kRepeat]; ACTIONS 8016 [sym_kString];
   ACTIONS 8018 [sym_kTry]; ACTIONS 8020 [sym_kVar]; ACTIONS 8022 [sym_kWhile];
   ACTIONS 8024 [sym_kWith]].

(** State 946. *)
Definition ts_parse_table_946 : parse_row :=
  [STATE 9071 [sym_if]; STATE 9121 [sym_ifElse; sym_while; sym_repeat; sym_for; sym_foreach;
   sym_try; sym_case; sym_block; sym_asm; sym_with; sym_raise; sym_statement; sym_goto;
   sym_labeledStatement; sym__statement]; STATE 12832 [sym_ifTr; sym_ifElseTr; sym_whileTr;
   sym_repeatTr; sym_forTr; sym_foreachTr; sym_tryTr; sym_caseTr]; STATE 12901 [sym_blockTr];
   STATE 12832 [sym_asmTr; sym_withTr; sym_raiseTr; sym_statementTr; sym_gotoTr;
   sym_labeledStatementTr; sym__statementTr]; STATE 12334 [sym_assignment];
   STATE 11914 [sym_varAssignDef]; STATE 12334 [sym_varDef; sym_constDef];
   STATE 1029 [sym_label]; STATE 7768 [sym__expr; sym_exprConditional]; STATE 7138 [sym__ref;
   sym_lambda; sym_inherited; sym_exprDot; sym_exprDeref; sym_exprAs; sym_exprTpl;
   sym_exprSubscript; sym_exprCall]; STATE 7768 [sym_exprBinary; sym_exprUnary];
   STATE 7138 [sym_exprParens; sym_exprBrackets; sym__literal; sym_literalString];
   STATE 6388 [sym__literalString; sym_literalChar]; STATE 7138 [sym_literalNumber];
   STATE 7299 [sym__literalInt; sym__literalFloat]; STATE 6388 [aux_sym_literalString_repeat1];
   ACTIONS 9334 [anon_sym_SEMI]; ACTIONS 7968 [anon_sym_LBRACK]; ACTIONS 7970 [anon_sym_LPAREN];
   ACTIONS 7972 [aux_sym__literalString_token1]; ACTIONS 7974 [anon_sym_POUND];
   ACTIONS 7976 [aux_sym__literalInt_token1]; ACTIONS 7978 [aux_sym__literalInt_token2;
   aux_sym__literalInt_token3]; ACTIONS 7976 [aux_sym__literalFloat_token1];
   ACTIONS 7980 [sym_kAdd; sym_kSub]; ACTIONS 7982 [sym_kAt]; ACTIONS 7984 [sym_kTrue;
   sym_kFalse]; ACTIONS 7986 [sym_labelNumber]; ACTIONS 3 [sym__space];
   ACTIONS 5 [sym_ppDirective]; ACTIONS 3 [sym_comment]; ACTIONS 7984 [sym_ppFragmentExpr];
   ACTIONS 7972 [sym__literalStringMultiline]; ACTIONS 7988 [sym_identifier];
   ACTIONS 7990 [sym_kSpecialize]; ACTIONS 3304 [sym_kOtherwise]; ACTIONS 7994 [sym_kAsm];
   ACTIONS 7996 [sym_kBegin]; ACTIONS 7998 [sym_kCase]; ACTIONS 8000 [sym_kConst];
   ACTIONS 3304 [sym_kElse; sym_kEnd]; ACTIONS 8002 [sym_kFor]; ACTIONS 8004 [sym_kFunction];
   ACTIONS 8006 [sym_kGoto]; ACTIONS 8008 [sym_kIf]; ACTIONS 8010 [sym_kInherited];
   ACTIONS 7984 [sym_kNil]; ACTIONS 7982 [sym_kNot]; ACTIONS 8004 [sym_kProcedure];
   ACTIONS 8012 [sym_kRaise]; ACTIONS 8014 [sym_kRepeat]; ACTIONS 8016 [sym_kString];
   ACTIONS 8018 [sym_kTry]; ACTIONS 8020 [sym_kVar]; ACTIONS 8022 [sym_kWhile];
   ACTIONS 8024 [sym_kWith]].

(** State 947. *)
Definition ts_parse_table_947 : parse_row :=
  [STATE 1266 [sym__procAttribute]; STATE 15237 [sym_procAttribute];
   STATE 891 [aux_sym_declProcFwd_repeat1]; ACTIONS 9336 [anon_sym_SEMI; anon_sym_COMMA];
   ACTIONS 9338 [anon_sym_LBRACK]; ACTIONS 9341 [anon_sym_LPAREN];
   ACTIONS 9336 [aux_sym__literalString_token1; anon_sym_POUND];
   ACTIONS 9341 [aux_sym__literalInt_token1]; ACTIONS 9336 [aux_sym__literalInt_token2;
   aux_sym__literalInt_token3]; ACTIONS 9341 [aux_sym__literalFloat_token1];
   ACTIONS 9336 [aux_sym_ppUsesBlock_token1; aux_sym_ppUsesBlock_token2;
   aux_sym_ppUsesBlock_token3]; ACTIONS 9341 [sym_kAdd; sym_kSub]; ACTIONS 9336 [sym_kAt;
   sym_kTrue; sym_kFalse]; ACTIONS 3 [sym__space]; ACTIONS 5 [sym_ppDirective];
   ACTIONS 3 [sym_comment]; ACTIONS 9336 [sym_ppFragmentExpr; sym__literalStringMultiline;
   sym_identifier]; ACTIONS 9343 [sym_kDefault; sym_kNodefault]; ACTIONS 9346 [sym_kDispId];
   ACTIONS 9336 [sym_kGeneric; sym_kSpecialize; sym_kOperator]; ACTIONS 9349 [sym_kPublic];
   ACTIONS 9343 [sym_kStatic; sym_kVirtual; sym_kAbstract; sym_kDynamic; sym_kOverride;
   sym_kOverload; sym_kReintroduce; sym_kStdcall; sym_kCdecl; sym_kCppdecl; sym_kPascal;
   sym_kRegister; sym_kMwpascal]; ACTIONS 9352 [sym_kMessage]; ACTIONS 9355 [sym_kDeprecated];
   ACTIONS 9343 [sym_kExperimental; sym_kPlatform; sym_kUnimplemented; sym_kCvar];
   ACTIONS 9358 [sym_kExport]; ACTIONS 9343 [sym_kFar; sym_kNear; sym_kSafecall; sym_kAssembler;
   sym_kNostackframe; sym_kInterrupt; sym_kNoreturn; sym_kIocheck; sym_kLocal; sym_kHardfloat;
   sym_kSoftfloat; sym_kMs_abi_default; sym_kMs_abi_cdecl; sym_kSaveregisters;
   sym_kSysv_abi_default; sym_kSysv_abi_cdecl; sym_kVectorcall; sym_kVarargs; sym_kWinapi];
   ACTIONS 9361 [sym_kAlias]; ACTIONS 9336 [sym_kAsm; sym_kBegin; sym_kCase; sym_kClass;
   sym_kConst; sym_kConstructor; sym_kDestructor; sym_kExports; sym_kFor; sym_kFunction;
   sym_kGoto; sym_kIf; sym_kInherited]; ACTIONS 1016 [sym_kInline]; ACTIONS 9336 [sym_kLabel;
   sym_kNil; sym_kNot; sym_kProcedure; sym_kProperty; sym_kRaise; sym_kRepeat;
   sym_kResourcestring; sym_kString; sym_kThreadvar; sym_kTry; sym_kType; sym_kUses; sym_kVar;
   sym_kWhile; sym_kWith]].

(** State 948. *)
Definition ts_parse_table_948 : parse_row :=
  [STATE 6061 [sym_if]; STATE 6082 [sym_ifElse; sym_while; sym_repeat; sym_for; sym_foreach;
   sym_try; sym_case; sym_block; sym_asm; sym_with; sym_raise; sym_statement; sym_goto;
   sym_labeledStatement; sym__statement]; STATE 12897 [sym_ifTr; sym_ifElseTr; sym_whileTr;
   sym_repeatTr; sym_forTr; sym_foreachTr; sym_tryTr; sym_caseTr]; STATE 12758 [sym_blockTr];
   STATE 12897 [sym_asmTr; sym_withTr; sym_raiseTr; sym_statementTr; sym_gotoTr;
   sym_labeledStatementTr; sym__statementTr]; STATE 12174 [sym_assignment];
   STATE 11928 [sym_varAssignDef]; STATE 12174 [sym_varDef; sym_constDef]; STATE 992 [sym_label];
   STATE 7735 [sym__expr; sym_exprConditional]; STATE 7153 [sym__ref; sym_lambda; sym_inherited;
   sym_exprDot; sym_exprDeref; sym_exprAs; sym_exprTpl; sym_exprSubscript; sym_exprCall];
   STATE 7735 [sym_exprBinary; sym_exprUnary]; STATE 7153 [sym_exprParens; sym_exprBrackets;
   sym__literal; sym_literalString]; STATE 6416 [sym__literalString; sym_literalChar];
   STATE 7153 [sym_literalNumber]; STATE 7250 [sym__literalInt; sym__literalFloat];
   STATE 6416 [aux_sym_literalString_repeat1]; ACTIONS 9364 [anon_sym_SEMI];
   ACTIONS 7422 [anon_sym_LBRACK]; ACTIONS 7424 [anon_sym_LPAREN];
   ACTIONS 7426 [aux_sym__literalString_token1]; ACTIONS 7428 [anon_sym_POUND];
   ACTIONS 7430 [aux_sym__literalInt_token1]; ACTIONS 7432 [aux_sym__literalInt_token2;
   aux_sym__literalInt_token3]; ACTIONS 7430 [aux_sym__literalFloat_token1];
   ACTIONS 7434 [sym_kAdd; sym_kSub]; ACTIONS 7436 [sym_kAt]; ACTIONS 7438 [sym_kTrue;
   sym_kFalse]; ACTIONS 7440 [sym_labelNumber]; ACTIONS 3 [sym__space];
   ACTIONS 5 [sym_ppDirective]; ACTIONS 3 [sym_comment]; ACTIONS 7438 [sym_ppFragmentExpr];
   ACTIONS 7426 [sym__literalStringMultiline]; ACTIONS 7442 [sym_identifier];
   ACTIONS 7444 [sym_kSpecialize]; ACTIONS 8088 [sym_kAsm]; ACTIONS 8090 [sym_kBegin];
   ACTIONS 8092 [sym_kCase]; ACTIONS 7452 [sym_kConst]; ACTIONS 3272 [sym_kElse; sym_kExcept;
   sym_kFinally]; ACTIONS 8094 [sym_kFor]; ACTIONS 7456 [sym_kFunction];
   ACTIONS 8096 [sym_kGoto]; ACTIONS 9366 [sym_kIf]; ACTIONS 7462 [sym_kInherited];
   ACTIONS 7438 [sym_kNil]; ACTIONS 7436 [sym_kNot]; ACTIONS 7456 [sym_kProcedure];
   ACTIONS 8100 [sym_kRaise]; ACTIONS 8102 [sym_kRepeat]; ACTIONS 7468 [sym_kString];
   ACTIONS 8104 [sym_kTry]; ACTIONS 7472 [sym_kVar]; ACTIONS 8106 [sym_kWhile];
   ACTIONS 8108 [sym_kWith]].

(** State 949. *)
Definition ts_parse_table_949 : parse_row :=
  [STATE 6061 [sym_if]; STATE 6010 [sym_ifElse; sym_while; sym_repeat; sym_for; sym_foreach;
   sym_try; sym_case; sym_block; sym_asm; sym_with; sym_raise; sym_statement; sym_goto;
   sym_labeledStatement; sym__statement]; STATE 12904 [sym_ifTr; sym_ifElseTr; sym_whileTr;
   sym_repeatTr; sym_forTr; sym_foreachTr; sym_tryTr; sym_caseTr]; STATE 12758 [sym_blockTr];
   STATE 12904 [sym_asmTr; sym_withTr; sym_raiseTr; sym_statementTr; sym_gotoTr;
   sym_labeledStatementTr; sym__statementTr]; STATE 12174 [sym_assignment];
   STATE 11928 [sym_varAssignDef]; STATE 12174 [sym_varDef; sym_constDef]; STATE 992 [sym_label];
   STATE 7735 [sym__expr; sym_exprConditional]; STATE 7153 [sym__ref; sym_lambda; sym_inherited;
   sym_exprDot; sym_exprDeref; sym_exprAs; sym_exprTpl; sym_exprSubscript; sym_exprCall];
   STATE 7735 [sym_exprBinary; sym_exprUnary]; STATE 7153 [sym_exprParens; sym_exprBrackets;
   sym__literal; sym_literalString]; STATE 6416 [sym__literalString; sym_literalChar];
   STATE 7153 [sym_literalNumber]; STATE 7250 [sym__literalInt; sym__literalFloat];
   STATE 6416 [aux_sym_literalString_repeat1]; ACTIONS 9368 [anon_sym_SEMI];
   ACTIONS 7422 [anon_sym_LBRACK]; ACTIONS 7424 [anon_sym_LPAREN];
   ACTIONS 7426 [aux_sym__literalString_token1]; ACTIONS 7428 [anon_sym_POUND];
   ACTIONS 7430 [aux_sym__literalInt_token1]; ACTIONS 7432 [aux_sym__literalInt_token2;
   aux_sym__literalInt_token3]; ACTIONS 7430 [aux_sym__literalFloat_token1];
   ACTIONS 7434 [sym_kAdd; sym_kSub]; ACTIONS 7436 [sym_kAt]; ACTIONS 7438 [sym_kTrue;
   sym_kFalse]; ACTIONS 7440 [sym_labelNumber]; ACTIONS 3 [sym__space];
   ACTIONS 5 [sym_ppDirective]; ACTIONS 3 [sym_comment]; ACTIONS 7438 [sym_ppFragmentExpr];
   ACTIONS 7426 [sym__literalStringMultiline]; ACTIONS 7442 [sym_identifier];
   ACTIONS 7444 [sym_kSpecialize]; ACTIONS 8088 [sym_kAsm]; ACTIONS 8090 [sym_kBegin];
   ACTIONS 8092 [sym_kCase]; ACTIONS 7452 [sym_kConst]; ACTIONS 3278 [sym_kElse; sym_kExcept;
   sym_kFinally]; ACTIONS 8094 [sym_kFor]; ACTIONS 7456 [sym_kFunction];
   ACTIONS 8096 [sym_kGoto]; ACTIONS 9366 [sym_kIf]; ACTIONS 7462 [sym_kInherited];
   ACTIONS 7438 [sym_kNil]; ACTIONS 7436 [sym_kNot]; ACTIONS 7456 [sym_kProcedure];
   ACTIONS 8100 [sym_kRaise]; ACTIONS 8102 [sym_kRepeat]; ACTIONS 7468 [sym_kString];
   ACTIONS 8104 [sym_kTry]; ACTIONS 7472 [sym_kVar]; ACTIONS 8106 [sym_kWhile];
   ACTIONS 8108 [sym_kWith]].

(** State 950. *)
Definition ts_parse_table_950 : parse_row :=
  [STATE 6061 [sym_if]; STATE 6007 [sym_ifElse; sym_while; sym_repeat; sym_for; sym_foreach;
   sym_try; sym_case; sym_block; sym_asm; sym_with; sym_raise; sym_statement; sym_goto;
   sym_labeledStatement; sym__statement]; STATE 12948 [sym_ifTr; sym_ifElseTr; sym_whileTr;
   sym_repeatTr; sym_forTr; sym_foreachTr; sym_tryTr; sym_caseTr]; STATE 12758 [sym_blockTr];
   STATE 12948 [sym_asmTr; sym_withTr; sym_raiseTr; sym_statementTr; sym_gotoTr;
   sym_labeledStatementTr; sym__statementTr]; STATE 12174 [sym_assignment];
   STATE 11928 [sym_varAssignDef]; STATE 12174 [sym_varDef; sym_constDef]; STATE 992 [sym_label];
   STATE 7735 [sym__expr; sym_exprConditional]; STATE 7153 [sym__ref; sym_lambda; sym_inherited;
   sym_exprDot; sym_exprDeref; sym_exprAs; sym_exprTpl; sym_exprSubscript; sym_exprCall];
   STATE 7735 [sym_exprBinary; sym_exprUnary]; STATE 7153 [sym_exprParens; sym_exprBrackets;
   sym__literal; sym_literalString]; STATE 6416 [sym__literalString; sym_literalChar];
   STATE 7153 [sym_literalNumber]; STATE 7250 [sym__literalInt; sym__literalFloat];
   STATE 6416 [aux_sym_literalString_repeat1]; ACTIONS 9370 [anon_sym_SEMI];
   ACTIONS 7422 [anon_sym_LBRACK]; ACTIONS 7424 [anon_sym_LPAREN];
   ACTIONS 7426 [aux_sym__literalString_token1]; ACTIONS 7428 [anon_sym_POUND];
   ACTIONS 7430 [aux_sym__literalInt_token1]; ACTIONS 7432 [aux_sym__literalInt_token2;
   aux_sym__literalInt_token3]; ACTIONS 7430 [aux_sym__literalFloat_token1];
   ACTIONS 7434 [sym_kAdd; sym_kSub]; ACTIONS 7436 [sym_kAt]; ACTIONS 7438 [sym_kTrue;
   sym_kFalse]; ACTIONS 7440 [sym_labelNumber]; ACTIONS 3 [sym__space];
   ACTIONS 5 [sym_ppDirective]; ACTIONS 3 [sym_comment]; ACTIONS 7438 [sym_ppFragmentExpr];
   ACTIONS 7426 [sym__literalStringMultiline]; ACTIONS 7442 [sym_identifier];
   ACTIONS 7444 [sym_kSpecialize]; ACTIONS 8088 [sym_kAsm]; ACTIONS 8090 [sym_kBegin];
   ACTIONS 8092 [sym_kCase]; ACTIONS 7452 [sym_kConst]; ACTIONS 3282 [sym_kElse; sym_kExcept;
   sym_kFinally]; ACTIONS 8094 [sym_kFor]; ACTIONS 7456 [sym_kFunction];
   ACTIONS 8096 [sym_kGoto]; ACTIONS 9366 [sym_kIf]; ACTIONS 7462 [sym_kInherited];
   ACTIONS 7438 [sym_kNil]; ACTIONS 7436 [sym_kNot]; ACTIONS 7456 [sym_kProcedure];
   ACTIONS 8100 [sym_kRaise]; ACTIONS 8102 [sym_kRepeat]; ACTIONS 7468 [sym_kString];
   ACTIONS 8104 [sym_kTry]; ACTIONS 7472 [sym_kVar]; ACTIONS 8106 [sym_kWhile];
   ACTIONS 8108 [sym_kWith]].

(** State 951. *)
Definition ts_parse_table_951 : parse_row :=
  [STATE 6061 [sym_if]; STATE 6135 [sym_ifElse; sym_while; sym_repeat; sym_for; sym_foreach;
   sym_try; sym_case; sym_block; sym_asm; sym_with; sym_raise; sym_statement; sym_goto];
   STATE 6085 [sym_labeledStatement]; STATE 6135 [sym__statement]; STATE 12966 [sym_ifTr;
   sym_ifElseTr; sym_whileTr; sym_repeatTr; sym_forTr; sym_foreachTr; sym_tryTr; sym_caseTr];
   STATE 12758 [sym_blockTr]; STATE 12966 [sym_asmTr; sym_withTr; sym_raiseTr; sym_statementTr;
   sym_gotoTr]; STATE 12964 [sym_labeledStatementTr]; STATE 12966 [sym__statementTr];
   STATE 12174 [sym_assignment]; STATE 11928 [sym_varAssignDef]; STATE 12174 [sym_varDef;
   sym_constDef]; STATE 992 [sym_label]; STATE 7735 [sym__expr; sym_exprConditional];
   STATE 7153 [sym__ref; sym_lambda; sym_inherited; sym_exprDot; sym_exprDeref; sym_exprAs;
   sym_exprTpl; sym_exprSubscript; sym_exprCall]; STATE 7735 [sym_exprBinary; sym_exprUnary];
   STATE 7153 [sym_exprParens; sym_exprBrackets; sym__literal; sym_literalString];
   STATE 6416 [sym__literalString; sym_literalChar]; STATE 7153 [sym_literalNumber];
   STATE 7250 [sym__literalInt; sym__literalFloat]; STATE 6416 [aux_sym_literalString_repeat1];
   ACTIONS 9372 [anon_sym_SEMI]; ACTIONS 7422 [anon_sym_LBRACK]; ACTIONS 7424 [anon_sym_LPAREN];
   ACTIONS 7426 [aux_sym__literalString_token1]; ACTIONS 7428 [anon_sym_POUND];
   ACTIONS 7430 [aux_sym__literalInt_token1]; ACTIONS 7432 [aux_sym__literalInt_token2;
   aux_sym__literalInt_token3]; ACTIONS 7430 [aux_sym__literalFloat_token1];
   ACTIONS 7434 [sym_kAdd; sym_kSub]; ACTIONS 7436 [sym_kAt]; ACTIONS 7438 [sym_kTrue;
   sym_kFalse]; ACTIONS 7440 [sym_labelNumber]; ACTIONS 3 [sym__space];
   ACTIONS 5 [sym_ppDirective]; ACTIONS 3 [sym_comment]; ACTIONS 7438 [sym_ppFragmentExpr];
   ACTIONS 7426 [sym__literalStringMultiline]; ACTIONS 7442 [sym_identifier];
   ACTIONS 7444 [sym_kSpecialize]; ACTIONS 8088 [sym_kAsm]; ACTIONS 8090 [sym_kBegin];
   ACTIONS 8092 [sym_kCase]; ACTIONS 7452 [sym_kConst]; ACTIONS 3286 [sym_kElse; sym_kExcept;
   sym_kFinally]; ACTIONS 8094 [sym_kFor]; ACTIONS 7456 [sym_kFunction];
   ACTIONS 8096 [sym_kGoto]; ACTIONS 9366 [sym_kIf]; ACTIONS 7462 [sym_kInherited];
   ACTIONS 7438 [sym_kNil]; ACTIONS 7436 [sym_kNot]; ACTIONS 7456 [sym_kProcedure];
   ACTIONS 8100 [sym_kRaise]; ACTIONS 8102 [sym_kRepeat]; ACTIONS 7468 [sym_kString];
   ACTIONS 8104 [sym_kTry]; ACTIONS 7472 [sym_kVar]; ACTIONS 8106 [sym_kWhile];
   ACTIONS 8108 [sym_kWith]].

(** State 952. *)
Definition ts_parse_table_952 : parse_row :=
  [STATE 6061 [sym_if]; STATE 6059 [sym_ifElse; sym_while; sym_repeat; sym_for; sym_foreach;
   sym_try; sym_case; sym_block; sym_asm; sym_with; sym_raise; sym_statement; sym_goto;
   sym_labeledStatement; sym__statement]; STATE 12980 [sym_ifTr; sym_ifElseTr; sym_whileTr;
   sym_repeatTr; sym_forTr; sym_foreachTr; sym_tryTr; sym_caseTr]; STATE 12758 [sym_blockTr];
   STATE 12980 [sym_asmTr; sym_withTr; sym_raiseTr; sym_statementTr; sym_gotoTr;
   sym_labeledStatementTr; sym__statementTr]; STATE 12174 [sym_assignment];
   STATE 11928 [sym_varAssignDef]; STATE 12174 [sym_varDef; sym_constDef]; STATE 992 [sym_label];
   STATE 7735 [sym__expr; sym_exprConditional]; STATE 7153 [sym__ref; sym_lambda; sym_inherited;
   sym_exprDot; sym_exprDeref; sym_exprAs; sym_exprTpl; sym_exprSubscript; sym_exprCall];
   STATE 7735 [sym_exprBinary; sym_exprUnary]; STATE 7153 [sym_exprParens; sym_exprBrackets;
   sym__literal; sym_literalString]; STATE 6416 [sym__literalString; sym_literalChar];
   STATE 7153 [sym_literalNumber]; STATE 7250 [sym__literalInt; sym__literalFloat];
   STATE 6416 [aux_sym_literalString_repeat1]; ACTIONS 9374 [anon_sym_SEMI];
   ACTIONS 7422 [anon_sym_LBRACK]; ACTIONS 7424 [anon_sym_LPAREN];
   ACTIONS 7426 [aux_sym__literalString_token1]; ACTIONS 7428 [anon_sym_POUND];
   ACTIONS 7430 [aux_sym__literalInt_token1]; ACTIONS 7432 [aux_sym__literalInt_token2;
   aux_sym__literalInt_token3]; ACTIONS 7430 [aux_sym__literalFloat_token1];
   ACTIONS 7434 [sym_kAdd; sym_kSub]; ACTIONS 7436 [sym_kAt]; ACTIONS 7438 [sym_kTrue;
   sym_kFalse]; ACTIONS 7440 [sym_labelNumber]; ACTIONS 3 [sym__space];
   ACTIONS 5 [sym_ppDirective]; ACTIONS 3 [sym_comment]; ACTIONS 7438 [sym_ppFragmentExpr];
   ACTIONS 7426 [sym__literalStringMultiline]; ACTIONS 7442 [sym_identifier];
   ACTIONS 7444 [sym_kSpecialize]; ACTIONS 8088 [sym_kAsm]; ACTIONS 8090 [sym_kBegin];
   ACTIONS 8092 [sym_kCase]; ACTIONS 7452 [sym_kConst]; ACTIONS 3290 [sym_kElse; sym_kExcept;
   sym_kFinally]; ACTIONS 8094 [sym_kFor]; ACTIONS 7456 [sym_kFunction];
   ACTIONS 8096 [sym_kGoto]; ACTIONS 9366 [sym_kIf]; ACTIONS 7462 [sym_kInherited];
   ACTIONS 7438 [sym_kNil]; ACTIONS 7436 [sym_kNot]; ACTIONS 7456 [sym_kProcedure];
   ACTIONS 8100 [sym_kRaise]; ACTIONS 8102 [sym_kRepeat]; ACTIONS 7468 [sym_kString];
   ACTIONS 8104 [sym_kTry]; ACTIONS 7472 [sym_kVar]; ACTIONS 8106 [sym_kWhile];
   ACTIONS 8108 [sym_kWith]].

(** State 953. *)
Definition ts_parse_table_953 : parse_row :=
  [STATE 6061 [sym_if]; STATE 6062 [sym_ifElse; sym_while; sym_repeat; sym_for; sym_foreach;
   sym_try; sym_case; sym_block; sym_asm; sym_with; sym_raise; sym_statement; sym_goto;
   sym_labeledStatement; sym__statement]; STATE 12984 [sym_ifTr; sym_ifElseTr; sym_whileTr;
   sym_repeatTr; sym_forTr; sym_foreachTr; sym_tryTr; sym_caseTr]; STATE 12758 [sym_blockTr];
   STATE 12984 [sym_asmTr; sym_withTr; sym_raiseTr; sym_statementTr; sym_gotoTr;
   sym_labeledStatementTr; sym__statementTr]; STATE 12174 [sym_assignment];
   STATE 11928 [sym_varAssignDef]; STATE 12174 [sym_varDef; sym_constDef]; STATE 992 [sym_label];
   STATE 7735 [sym__expr; sym_exprConditional]; STATE 7153 [sym__ref; sym_lambda; sym_inherited;
   sym_exprDot; sym_exprDeref; sym_exprAs; sym_exprTpl; sym_exprSubscript; sym_exprCall];
   STATE 7735 [sym_exprBinary; sym_exprUnary]; STATE 7153 [sym_exprParens; sym_exprBrackets;
   sym__literal; sym_literalString]; STATE 6416 [sym__literalString; sym_literalChar];
   STATE 7153 [sym_literalNumber]; STATE 7250 [sym__literalInt; sym__literalFloat];
   STATE 6416 [aux_sym_literalString_repeat1]; ACTIONS 9376 [anon_sym_SEMI];
   ACTIONS 7422 [anon_sym_LBRACK]; ACTIONS 7424 [anon_sym_LPAREN];
   ACTIONS 7426 [aux_sym__literalString_token1]; ACTIONS 7428 [anon_sym_POUND];
   ACTIONS 7430 [aux_sym__literalInt_token1]; ACTIONS 7432 [aux_sym__literalInt_token2;
   aux_sym__literalInt_token3]; ACTIONS 7430 [aux_sym__literalFloat_token1];
   ACTIONS 7434 [sym_kAdd; sym_kSub]; ACTIONS 7436 [sym_kAt]; ACTIONS 7438 [sym_kTrue;
   sym_kFalse]; ACTIONS 7440 [sym_labelNumber]; ACTIONS 3 [sym__space];
   ACTIONS 5 [sym_ppDirective]; ACTIONS 3 [sym_comment]; ACTIONS 7438 [sym_ppFragmentExpr];
   ACTIONS 7426 [sym__literalStringMultiline]; ACTIONS 7442 [sym_identifier];
   ACTIONS 7444 [sym_kSpecialize]; ACTIONS 8088 [sym_kAsm]; ACTIONS 8090 [sym_kBegin];
   ACTIONS 8092 [sym_kCase]; ACTIONS 7452 [sym_kConst]; ACTIONS 3296 [sym_kElse; sym_kExcept;
   sym_kFinally]; ACTIONS 8094 [sym_kFor]; ACTIONS 7456 [sym_kFunction];
   ACTIONS 8096 [sym_kGoto]; ACTIONS 9366 [sym_kIf]; ACTIONS 7462 [sym_kInherited];
   ACTIONS 7438 [sym_kNil]; ACTIONS 7436 [sym_kNot]; ACTIONS 7456 [sym_kProcedure];
   ACTIONS 8100 [sym_kRaise]; ACTIONS 8102 [sym_kRepeat]; ACTIONS 7468 [sym_kString];
   ACTIONS 8104 [sym_kTry]; ACTIONS 7472 [sym_kVar]; ACTIONS 8106 [sym_kWhile];
   ACTIONS 8108 [sym_kWith]].

(** State 954. *)
Definition ts_parse_table_954 : parse_row :=
  [STATE 6061 [sym_if]; STATE 6072 [sym_ifElse; sym_while; sym_repeat; sym_for; sym_foreach;
   sym_try; sym_case; sym_block; sym_asm; sym_with; sym_raise; sym_statement; sym_goto;
   sym_labeledStatement; sym__statement]; STATE 12962 [sym_ifTr; sym_ifElseTr; sym_whileTr;
   sym_repeatTr; sym_forTr; sym_foreachTr; sym_tryTr; sym_caseTr]; STATE 12758 [sym_blockTr];
   STATE 12962 [sym_asmTr; sym_withTr; sym_raiseTr; sym_statementTr; sym_gotoTr;
   sym_labeledStatementTr; sym__statementTr]; STATE 12174 [sym_assignment];
   STATE 11928 [sym_varAssignDef]; STATE 12174 [sym_varDef; sym_constDef]; STATE 992 [sym_label];
   STATE 7735 [sym__expr; sym_exprConditional]; STATE 7153 [sym__ref; sym_lambda; sym_inherited;
   sym_exprDot; sym_exprDeref; sym_exprAs; sym_exprTpl; sym_exprSubscript; sym_exprCall];
   STATE 7735 [sym_exprBinary; sym_exprUnary]; STATE 7153 [sym_exprParens; sym_exprBrackets;
   sym__literal; sym_literalString]; STATE 6416 [sym__literalString; sym_literalChar];
   STATE 7153 [sym_literalNumber]; STATE 7250 [sym__literalInt; sym__literalFloat];
   STATE 6416 [aux_sym_literalString_repeat1]; ACTIONS 9378 [anon_sym_SEMI];
   ACTIONS 7422 [anon_sym_LBRACK]; ACTIONS 7424 [anon_sym_LPAREN];
   ACTIONS 7426 [aux_sym__literalString_token1]; ACTIONS 7428 [anon_sym_POUND];
   ACTIONS 7430 [aux_sym__literalInt_token1]; ACTIONS 7432 [aux_sym__literalInt_token2;
   aux_sym__literalInt_token3]; ACTIONS 7430 [aux_sym__literalFloat_token1];
   ACTIONS 7434 [sym_kAdd; sym_kSub]; ACTIONS 7436 [sym_kAt]; ACTIONS 7438 [sym_kTrue;
   sym_kFalse]; ACTIONS 7440 [sym_labelNumber]; ACTIONS 3 [sym__space];
   ACTIONS 5 [sym_ppDirective]; ACTIONS 3 [sym_comment]; ACTIONS 7438 [sym_ppFragmentExpr];
   ACTIONS 7426 [sym__literalStringMultiline]; ACTIONS 7442 [sym_identifier];
   ACTIONS 7444 [sym_kSpecialize]; ACTIONS 8088 [sym_kAsm]; ACTIONS 8090 [sym_kBegin];
   ACTIONS 8092 [sym_kCase]; ACTIONS 7452 [sym_kConst]; ACTIONS 3304 [sym_kElse; sym_kExcept;
   sym_kFinally]; ACTIONS 8094 [sym_kFor]; ACTIONS 7456 [sym_kFunction];
   ACTIONS 8096 [sym_kGoto]; ACTIONS 9366 [sym_kIf]; ACTIONS 7462 [sym_kInherited];
   ACTIONS 7438 [sym_kNil]; ACTIONS 7436 [sym_kNot]; ACTIONS 7456 [sym_kProcedure];
   ACTIONS 8100 [sym_kRaise]; ACTIONS 8102 [sym_kRepeat]; ACTIONS 7468 [sym_kString];
   ACTIONS 8104 [sym_kTry]; ACTIONS 7472 [sym_kVar]; ACTIONS 8106 [sym_kWhile];
   ACTIONS 8108 [sym_kWith]].

(** State 955. *)
Definition ts_parse_table_955 : parse_row :=
  [STATE 1266 [sym__procAttribute]; STATE 15237 [sym_procAttribute];
   STATE 883 [aux_sym_declProcFwd_repeat1]; ACTIONS 9380 [anon_sym_SEMI; anon_sym_COMMA];
   ACTIONS 9382 [anon_sym_LBRACK]; ACTIONS 9385 [anon_sym_LPAREN];
   ACTIONS 9380 [aux_sym__literalString_token1; anon_sym_POUND];
   ACTIONS 9385 [aux_sym__literalInt_token1]; ACTIONS 9380 [aux_sym__literalInt_token2;
   aux_sym__literalInt_token3]; ACTIONS 9385 [aux_sym__literalFloat_token1];
   ACTIONS 9380 [aux_sym_ppUsesBlock_token1; aux_sym_ppUsesBlock_token2;
   aux_sym_ppUsesBlock_token3]; ACTIONS 9385 [sym_kAdd; sym_kSub]; ACTIONS 9380 [sym_kAt;
   sym_kTrue; sym_kFalse]; ACTIONS 3 [sym__space]; ACTIONS 5 [sym_ppDirective];
   ACTIONS 3 [sym_comment]; ACTIONS 9380 [sym_ppFragmentExpr; sym__literalStringMultiline;
   sym_identifier]; ACTIONS 9387 [sym_kDefault; sym_kNodefault]; ACTIONS 9390 [sym_kDispId];
   ACTIONS 9380 [sym_kGeneric; sym_kSpecialize; sym_kOperator]; ACTIONS 9393 [sym_kPublic];
   ACTIONS 9387 [sym_kStatic; sym_kVirtual; sym_kAbstract; sym_kDynamic; sym_kOverride;
   sym_kOverload; sym_kReintroduce; sym_kStdcall; sym_kCdecl; sym_kCppdecl; sym_kPascal;
   sym_kRegister; sym_kMwpascal]; ACTIONS 9396 [sym_kMessage]; ACTIONS 9399 [sym_kDeprecated];
   ACTIONS 9387 [sym_kExperimental; sym_kPlatform; sym_kUnimplemented; sym_kCvar];
   ACTIONS 9402 [sym_kExport]; ACTIONS 9387 [sym_kFar; sym_kNear; sym_kSafecall; sym_kAssembler;
   sym_kNostackframe; sym_kInterrupt; sym_kNoreturn; sym_kIocheck; sym_kLocal; sym_kHardfloat;
   sym_kSoftfloat; sym_kMs_abi_default; sym_kMs_abi_cdecl; sym_kSaveregisters;
   sym_kSysv_abi_default; sym_kSysv_abi_cdecl; sym_kVectorcall; sym_kVarargs; sym_kWinapi];
   ACTIONS 9405 [sym_kAlias]; ACTIONS 9380 [sym_kAsm; sym_kBegin; sym_kCase; sym_kClass;
   sym_kConst; sym_kConstructor; sym_kDestructor; sym_kExports; sym_kFor; sym_kFunction;
   sym_kGoto; sym_kIf; sym_kInherited]; ACTIONS 1016 [sym_kInline]; ACTIONS 9380 [sym_kLabel;
   sym_kNil; sym_kNot; sym_kProcedure; sym_kProperty; sym_kRaise; sym_kRepeat;
   sym_kResourcestring; sym_kString; sym_kThreadvar; sym_kTry; sym_kType; sym_kUses; sym_kVar;
   sym_kWhile; sym_kWith]].

(** State 956. *)
Definition ts_parse_table_956 : parse_row :=
  [STATE 1266 [sym__procAttribute]; STATE 15237 [sym_procAttribute];
   STATE 912 [aux_sym_declProcFwd_repeat1]; ACTIONS 9408 [anon_sym_SEMI; anon_sym_COMMA];
   ACTIONS 9410 [anon_sym_LBRACK]; ACTIONS 9413 [anon_sym_LPAREN];
   ACTIONS 9408 [aux_sym__literalString_token1; anon_sym_POUND];
   ACTIONS 9413 [aux_sym__literalInt_token1]; ACTIONS 9408 [aux_sym__literalInt_token2;
   aux_sym__literalInt_token3]; ACTIONS 9413 [aux_sym__literalFloat_token1];
   ACTIONS 9408 [aux_sym_ppUsesBlock_token1; aux_sym_ppUsesBlock_token2;
   aux_sym_ppUsesBlock_token3]; ACTIONS 9413 [sym_kAdd; sym_kSub]; ACTIONS 9408 [sym_kAt;
   sym_kTrue; sym_kFalse]; ACTIONS 3 [sym__space]; ACTIONS 5 [sym_ppDirective];
   ACTIONS 3 [sym_comment]; ACTIONS 9408 [sym_ppFragmentExpr; sym__literalStringMultiline;
   sym_identifier]; ACTIONS 9415 [sym_kDefault; sym_kNodefault]; ACTIONS 9418 [sym_kDispId];
   ACTIONS 9408 [sym_kGeneric; sym_kSpecialize; sym_kOperator]; ACTIONS 9421 [sym_kPublic];
   ACTIONS 9415 [sym_kStatic; sym_kVirtual; sym_kAbstract; sym_kDynamic; sym_kOverride;
   sym_kOverload; sym_kReintroduce; sym_kStdcall; sym_kCdecl; sym_kCppdecl; sym_kPascal;
   sym_kRegister; sym_kMwpascal]; ACTIONS 9424 [sym_kMessage]; ACTIONS 9427 [sym_kDeprecated];
   ACTIONS 9415 [sym_kExperimental; sym_kPlatform; sym_kUnimplemented; sym_kCvar];
   ACTIONS 9430 [sym_kExport]; ACTIONS 9415 [sym_kFar; sym_kNear; sym_kSafecall; sym_kAssembler;
   sym_kNostackframe; sym_kInterrupt; sym_kNoreturn; sym_kIocheck; sym_kLocal; sym_kHardfloat;
   sym_kSoftfloat; sym_kMs_abi_default; sym_kMs_abi_cdecl; sym_kSaveregisters;
   sym_kSysv_abi_default; sym_kSysv_abi_cdecl; sym_kVectorcall; sym_kVarargs; sym_kWinapi];
   ACTIONS 9433 [sym_kAlias]; ACTIONS 9408 [sym_kAsm; sym_kBegin; sym_kCase; sym_kClass;
   sym_kConst; sym_kConstructor; sym_kDestructor; sym_kExports; sym_kFor; sym_kFunction;
   sym_kGoto; sym_kIf; sym_kInherited]; ACTIONS 1016 [sym_kInline]; ACTIONS 9408 [sym_kLabel;
   sym_kNil; sym_kNot; sym_kProcedure; sym_kProperty; sym_kRaise; sym_kRepeat;
   sym_kResourcestring; sym_kString; sym_kThreadvar; sym_kTry; sym_kType; sym_kUses; sym_kVar;
   sym_kWhile; sym_kWith]].

(** State 957. *)
Definition ts_parse_table_957 : parse_row :=
  [STATE 1266 [sym__procAttribute]; STATE 15237 [sym_procAttribute];
   STATE 880 [aux_sym_declProcFwd_repeat1]; ACTIONS 9436 [anon_sym_SEMI; anon_sym_COMMA];
   ACTIONS 9438 [anon_sym_LBRACK]; ACTIONS 9441 [anon_sym_LPAREN];
   ACTIONS 9436 [aux_sym__literalString_token1; anon_sym_POUND];
   ACTIONS 9441 [aux_sym__literalInt_token1]; ACTIONS 9436 [aux_sym__literalInt_token2;
   aux_sym__literalInt_token3]; ACTIONS 9441 [aux_sym__literalFloat_token1];
   ACTIONS 9436 [aux_sym_ppUsesBlock_token1; aux_sym_ppUsesBlock_token2;
   aux_sym_ppUsesBlock_token3]; ACTIONS 9441 [sym_kAdd; sym_kSub]; ACTIONS 9436 [sym_kAt;
   sym_kTrue; sym_kFalse]; ACTIONS 3 [sym__space]; ACTIONS 5 [sym_ppDirective];
   ACTIONS 3 [sym_comment]; ACTIONS 9436 [sym_ppFragmentExpr; sym__literalStringMultiline;
   sym_identifier]; ACTIONS 9443 [sym_kDefault; sym_kNodefault]; ACTIONS 9446 [sym_kDispId];
   ACTIONS 9436 [sym_kGeneric; sym_kSpecialize; sym_kOperator]; ACTIONS 9449 [sym_kPublic];
   ACTIONS 9443 [sym_kStatic; sym_kVirtual; sym_kAbstract; sym_kDynamic; sym_kOverride;
   sym_kOverload; sym_kReintroduce; sym_kStdcall; sym_kCdecl; sym_kCppdecl; sym_kPascal;
   sym_kRegister; sym_kMwpascal]; ACTIONS 9452 [sym_kMessage]; ACTIONS 9455 [sym_kDeprecated];
   ACTIONS 9443 [sym_kExperimental; sym_kPlatform; sym_kUnimplemented; sym_kCvar];
   ACTIONS 9458 [sym_kExport]; ACTIONS 9443 [sym_kFar; sym_kNear; sym_kSafecall; sym_kAssembler;
   sym_kNostackframe; sym_kInterrupt; sym_kNoreturn; sym_kIocheck; sym_kLocal; sym_kHardfloat;
   sym_kSoftfloat; sym_kMs_abi_default; sym_kMs_abi_cdecl; sym_kSaveregisters;
   sym_kSysv_abi_default; sym_kSysv_abi_cdecl; sym_kVectorcall; sym_kVarargs; sym_kWinapi];
   ACTIONS 9461 [sym_kAlias]; ACTIONS 9436 [sym_kAsm; sym_kBegin; sym_kCase; sym_kClass;
   sym_kConst; sym_kConstructor; sym_kDestructor; sym_kExports; sym_kFor; sym_kFunction;
   sym_kGoto; sym_kIf; sym_kInherited]; ACTIONS 1016 [sym_kInline]; ACTIONS 9436 [sym_kLabel;
   sym_kNil; sym_kNot; sym_kProcedure; sym_kProperty; sym_kRaise; sym_kRepeat;
   sym_kResourcestring; sym_kString; sym_kThreadvar; sym_kTry; sym_kType; sym_kUses; sym_kVar;
   sym_kWhile; sym_kWith]].

(** State 958. *)
Definition ts_parse_table_958 : parse_row :=
  [STATE 1266 [sym__procAttribute]; STATE 15237 [sym_procAttribute];
   STATE 873 [aux_sym_declProcFwd_repeat1]; ACTIONS 9464 [anon_sym_SEMI; anon_sym_COMMA];
   ACTIONS 9466 [anon_sym_LBRACK]; ACTIONS 9469 [anon_sym_LPAREN];
   ACTIONS 9464 [aux_sym__literalString_token1; anon_sym_POUND];
   ACTIONS 9469 [aux_sym__literalInt_token1]; ACTIONS 9464 [aux_sym__literalInt_token2;
   aux_sym__literalInt_token3]; ACTIONS 9469 [aux_sym__literalFloat_token1];
   ACTIONS 9464 [aux_sym_ppUsesBlock_token1; aux_sym_ppUsesBlock_token2;
   aux_sym_ppUsesBlock_token3]; ACTIONS 9469 [sym_kAdd; sym_kSub]; ACTIONS 9464 [sym_kAt;
   sym_kTrue; sym_kFalse]; ACTIONS 3 [sym__space]; ACTIONS 5 [sym_ppDirective];
   ACTIONS 3 [sym_comment]; ACTIONS 9464 [sym_ppFragmentExpr; sym__literalStringMultiline;
   sym_identifier]; ACTIONS 9471 [sym_kDefault; sym_kNodefault]; ACTIONS 9474 [sym_kDispId];
   ACTIONS 9464 [sym_kGeneric; sym_kSpecialize; sym_kOperator]; ACTIONS 9477 [sym_kPublic];
   ACTIONS 9471 [sym_kStatic; sym_kVirtual; sym_kAbstract; sym_kDynamic; sym_kOverride;
   sym_kOverload; sym_kReintroduce; sym_kStdcall; sym_kCdecl; sym_kCppdecl; sym_kPascal;
   sym_kRegister; sym_kMwpascal]; ACTIONS 9480 [sym_kMessage]; ACTIONS 9483 [sym_kDeprecated];
   ACTIONS 9471 [sym_kExperimental; sym_kPlatform; sym_kUnimplemented; sym_kCvar];
   ACTIONS 9486 [sym_kExport]; ACTIONS 9471 [sym_kFar; sym_kNear; sym_kSafecall; sym_kAssembler;
   sym_kNostackframe; sym_kInterrupt; sym_kNoreturn; sym_kIocheck; sym_kLocal; sym_kHardfloat;
   sym_kSoftfloat; sym_kMs_abi_default; sym_kMs_abi_cdecl; sym_kSaveregisters;
   sym_kSysv_abi_default; sym_kSysv_abi_cdecl; sym_kVectorcall; sym_kVarargs; sym_kWinapi];
   ACTIONS 9489 [sym_kAlias]; ACTIONS 9464 [sym_kAsm; sym_kBegin; sym_kCase; sym_kClass;
   sym_kConst; sym_kConstructor; sym_kDestructor; sym_kExports; sym_kFor; sym_kFunction;
   sym_kGoto; sym_kIf; sym_kInherited]; ACTIONS 1016 [sym_kInline]; ACTIONS 9464 [sym_kLabel;
   sym_kNil; sym_kNot; sym_kProcedure; sym_kProperty; sym_kRaise; sym_kRepeat;
   sym_kResourcestring; sym_kString; sym_kThreadvar; sym_kTry; sym_kType; sym_kUses; sym_kVar;
   sym_kWhile; sym_kWith]].

(** State 959. *)
Definition ts_parse_table_959 : parse_row :=
  [STATE 1266 [sym__procAttribute]; STATE 15237 [sym_procAttribute];
   STATE 877 [aux_sym_declProcFwd_repeat1]; ACTIONS 9492 [anon_sym_SEMI; anon_sym_COMMA];
   ACTIONS 9494 [anon_sym_LBRACK]; ACTIONS 9497 [anon_sym_LPAREN];
   ACTIONS 9492 [aux_sym__literalString_token1; anon_sym_POUND];
   ACTIONS 9497 [aux_sym__literalInt_token1]; ACTIONS 9492 [aux_sym__literalInt_token2;
   aux_sym__literalInt_token3]; ACTIONS 9497 [aux_sym__literalFloat_token1];
   ACTIONS 9492 [aux_sym_ppUsesBlock_token1; aux_sym_ppUsesBlock_token2;
   aux_sym_ppUsesBlock_token3]; ACTIONS 9497 [sym_kAdd; sym_kSub]; ACTIONS 9492 [sym_kAt;
   sym_kTrue; sym_kFalse]; ACTIONS 3 [sym__space]; ACTIONS 5 [sym_ppDirective];
   ACTIONS 3 [sym_comment]; ACTIONS 9492 [sym_ppFragmentExpr; sym__literalStringMultiline;
   sym_identifier]; ACTIONS 9499 [sym_kDefault; sym_kNodefault]; ACTIONS 9502 [sym_kDispId];
   ACTIONS 9492 [sym_kGeneric; sym_kSpecialize; sym_kOperator]; ACTIONS 9505 [sym_kPublic];
   ACTIONS 9499 [sym_kStatic; sym_kVirtual; sym_kAbstract; sym_kDynamic; sym_kOverride;
   sym_kOverload; sym_kReintroduce; sym_kStdcall; sym_kCdecl; sym_kCppdecl; sym_kPascal;
   sym_kRegister; sym_kMwpascal]; ACTIONS 9508 [sym_kMessage]; ACTIONS 9511 [sym_kDeprecated];
   ACTIONS 9499 [sym_kExperimental; sym_kPlatform; sym_kUnimplemented; sym_kCvar];
   ACTIONS 9514 [sym_kExport]; ACTIONS 9499 [sym_kFar; sym_kNear; sym_kSafecall; sym_kAssembler;
   sym_kNostackframe; sym_kInterrupt; sym_kNoreturn; sym_kIocheck; sym_kLocal; sym_kHardfloat;
   sym_kSoftfloat; sym_kMs_abi_default; sym_kMs_abi_cdecl; sym_kSaveregisters;
   sym_kSysv_abi_default; sym_kSysv_abi_cdecl; sym_kVectorcall; sym_kVarargs; sym_kWinapi];
   ACTIONS 9517 [sym_kAlias]; ACTIONS 9492 [sym_kAsm; sym_kBegin; sym_kCase; sym_kClass;
   sym_kConst; sym_kConstructor; sym_kDestructor; sym_kExports; sym_kFor; sym_kFunction;
   sym_kGoto; sym_kIf; sym_kInherited]; ACTIONS 1016 [sym_kInline]; ACTIONS 9492 [sym_kLabel;
   sym_kNil; sym_kNot; sym_kProcedure; sym_kProperty; sym_kRaise; sym_kRepeat;
   sym_kResourcestring; sym_kString; sym_kThreadvar; sym_kTry; sym_kType; sym_kUses; sym_kVar;
   sym_kWhile; sym_kWith]].

(** State 960. *)
Definition ts_parse_table_960 : parse_row :=
  [STATE 1266 [sym__procAttribute]; STATE 15237 [sym_procAttribute];
   STATE 912 [aux_sym_declProcFwd_repeat1]; ACTIONS 9520 [anon_sym_SEMI; anon_sym_COMMA];
   ACTIONS 9522 [anon_sym_LBRACK]; ACTIONS 9525 [anon_sym_LPAREN];
   ACTIONS 9520 [aux_sym__literalString_token1; anon_sym_POUND];
   ACTIONS 9525 [aux_sym__literalInt_token1]; ACTIONS 9520 [aux_sym__literalInt_token2;
   aux_sym__literalInt_token3]; ACTIONS 9525 [aux_sym__literalFloat_token1];
   ACTIONS 9520 [aux_sym_ppUsesBlock_token1; aux_sym_ppUsesBlock_token2;
   aux_sym_ppUsesBlock_token3]; ACTIONS 9525 [sym_kAdd; sym_kSub]; ACTIONS 9520 [sym_kAt;
   sym_kTrue; sym_kFalse]; ACTIONS 3 [sym__space]; ACTIONS 5 [sym_ppDirective];
   ACTIONS 3 [sym_comment]; ACTIONS 9520 [sym_ppFragmentExpr; sym__literalStringMultiline;
   sym_identifier]; ACTIONS 9527 [sym_kDefault; sym_kNodefault]; ACTIONS 9530 [sym_kDispId];
   ACTIONS 9520 [sym_kGeneric; sym_kSpecialize; sym_kOperator]; ACTIONS 9533 [sym_kPublic];
   ACTIONS 9527 [sym_kStatic; sym_kVirtual; sym_kAbstract; sym_kDynamic; sym_kOverride;
   sym_kOverload; sym_kReintroduce; sym_kStdcall; sym_kCdecl; sym_kCppdecl; sym_kPascal;
   sym_kRegister; sym_kMwpascal]; ACTIONS 9536 [sym_kMessage]; ACTIONS 9539 [sym_kDeprecated];
   ACTIONS 9527 [sym_kExperimental; sym_kPlatform; sym_kUnimplemented; sym_kCvar];
   ACTIONS 9542 [sym_kExport]; ACTIONS 9527 [sym_kFar; sym_kNear; sym_kSafecall; sym_kAssembler;
   sym_kNostackframe; sym_kInterrupt; sym_kNoreturn; sym_kIocheck; sym_kLocal; sym_kHardfloat;
   sym_kSoftfloat; sym_kMs_abi_default; sym_kMs_abi_cdecl; sym_kSaveregisters;
   sym_kSysv_abi_default; sym_kSysv_abi_cdecl; sym_kVectorcall; sym_kVarargs; sym_kWinapi];
   ACTIONS 9545 [sym_kAlias]; ACTIONS 9520 [sym_kAsm; sym_kBegin; sym_kCase; sym_kClass;
   sym_kConst; sym_kConstructor; sym_kDestructor; sym_kExports; sym_kFor; sym_kFunction;
   sym_kGoto; sym_kIf; sym_kInherited]; ACTIONS 1016 [sym_kInline]; ACTIONS 9520 [sym_kLabel;
   sym_kNil; sym_kNot; sym_kProcedure; sym_kProperty; sym_kRaise; sym_kRepeat;
   sym_kResourcestring; sym_kString; sym_kThreadvar; sym_kTry; sym_kType; sym_kUses; sym_kVar;
   sym_kWhile; sym_kWith]].

(** State 961. *)
Definition ts_parse_table_961 : parse_row :=
  [STATE 1266 [sym__procAttribute]; STATE 15237 [sym_procAttribute];
   STATE 912 [aux_sym_declProcFwd_repeat1]; ACTIONS 9548 [anon_sym_SEMI; anon_sym_COMMA];
   ACTIONS 9550 [anon_sym_LBRACK]; ACTIONS 9553 [anon_sym_LPAREN];
   ACTIONS 9548 [aux_sym__literalString_token1; anon_sym_POUND];
   ACTIONS 9553 [aux_sym__literalInt_token1]; ACTIONS 9548 [aux_sym__literalInt_token2;
   aux_sym__literalInt_token3]; ACTIONS 9553 [aux_sym__literalFloat_token1];
   ACTIONS 9548 [aux_sym_ppUsesBlock_token1; aux_sym_ppUsesBlock_token2;
   aux_sym_ppUsesBlock_token3]; ACTIONS 9553 [sym_kAdd; sym_kSub]; ACTIONS 9548 [sym_kAt;
   sym_kTrue; sym_kFalse]; ACTIONS 3 [sym__space]; ACTIONS 5 [sym_ppDirective];
   ACTIONS 3 [sym_comment]; ACTIONS 9548 [sym_ppFragmentExpr; sym__literalStringMultiline;
   sym_identifier]; ACTIONS 9555 [sym_kDefault; sym_kNodefault]; ACTIONS 9558 [sym_kDispId];
   ACTIONS 9548 [sym_kGeneric; sym_kSpecialize; sym_kOperator]; ACTIONS 9561 [sym_kPublic];
   ACTIONS 9555 [sym_kStatic; sym_kVirtual; sym_kAbstract; sym_kDynamic; sym_kOverride;
   sym_kOverload; sym_kReintroduce; sym_kStdcall; sym_kCdecl; sym_kCppdecl; sym_kPascal;
   sym_kRegister; sym_kMwpascal]; ACTIONS 9564 [sym_kMessage]; ACTIONS 9567 [sym_kDeprecated];
   ACTIONS 9555 [sym_kExperimental; sym_kPlatform; sym_kUnimplemented; sym_kCvar];
   ACTIONS 9570 [sym_kExport]; ACTIONS 9555 [sym_kFar; sym_kNear; sym_kSafecall; sym_kAssembler;
   sym_kNostackframe; sym_kInterrupt; sym_kNoreturn; sym_kIocheck; sym_kLocal; sym_kHardfloat;
   sym_kSoftfloat; sym_kMs_abi_default; sym_kMs_abi_cdecl; sym_kSaveregisters;
   sym_kSysv_abi_default; sym_kSysv_abi_cdecl; sym_kVectorcall; sym_kVarargs; sym_kWinapi];
   ACTIONS 9573 [sym_kAlias]; ACTIONS 9548 [sym_kAsm; sym_kBegin; sym_kCase; sym_kClass;
   sym_kConst; sym_kConstructor; sym_kDestructor; sym_kExports; sym_kFor; sym_kFunction;
   sym_kGoto; sym_kIf; sym_kInherited]; ACTIONS 1016 [sym_kInline]; ACTIONS 9548 [sym_kLabel;
   sym_kNil; sym_kNot; sym_kProcedure; sym_kProperty; sym_kRaise; sym_kRepeat;
   sym_kResourcestring; sym_kString; sym_kThreadvar; sym_kTry; sym_kType; sym_kUses; sym_kVar;
   sym_kWhile; sym_kWith]].

(** State 962. *)
Definition ts_parse_table_962 : parse_row :=
  [STATE 1266 [sym__procAttribute]; STATE 15237 [sym_procAttribute];
   STATE 912 [aux_sym_declProcFwd_repeat1]; ACTIONS 9576 [anon_sym_SEMI; anon_sym_COMMA];
   ACTIONS 9578 [anon_sym_LBRACK]; ACTIONS 9581 [anon_sym_LPAREN];
   ACTIONS 9576 [aux_sym__literalString_token1; anon_sym_POUND];
   ACTIONS 9581 [aux_sym__literalInt_token1]; ACTIONS 9576 [aux_sym__literalInt_token2;
   aux_sym__literalInt_token3]; ACTIONS 9581 [aux_sym__literalFloat_token1];
   ACTIONS 9576 [aux_sym_ppUsesBlock_token1; aux_sym_ppUsesBlock_token2;
   aux_sym_ppUsesBlock_token3]; ACTIONS 9581 [sym_kAdd; sym_kSub]; ACTIONS 9576 [sym_kAt;
   sym_kTrue; sym_kFalse]; ACTIONS 3 [sym__space]; ACTIONS 5 [sym_ppDirective];
   ACTIONS 3 [sym_comment]; ACTIONS 9576 [sym_ppFragmentExpr; sym__literalStringMultiline;
   sym_identifier]; ACTIONS 9583 [sym_kDefault; sym_kNodefault]; ACTIONS 9586 [sym_kDispId];
   ACTIONS 9576 [sym_kGeneric; sym_kSpecialize; sym_kOperator]; ACTIONS 9589 [sym_kPublic];
   ACTIONS 9583 [sym_kStatic; sym_kVirtual; sym_kAbstract; sym_kDynamic; sym_kOverride;
   sym_kOverload; sym_kReintroduce; sym_kStdcall; sym_kCdecl; sym_kCppdecl; sym_kPascal;
   sym_kRegister; sym_kMwpascal]; ACTIONS 9592 [sym_kMessage]; ACTIONS 9595 [sym_kDeprecated];
   ACTIONS 9583 [sym_kExperimental; sym_kPlatform; sym_kUnimplemented; sym_kCvar];
   ACTIONS 9598 [sym_kExport]; ACTIONS 9583 [sym_kFar; sym_kNear; sym_kSafecall; sym_kAssembler;
   sym_kNostackframe; sym_kInterrupt; sym_kNoreturn; sym_kIocheck; sym_kLocal; sym_kHardfloat;
   sym_kSoftfloat; sym_kMs_abi_default; sym_kMs_abi_cdecl; sym_kSaveregisters;
   sym_kSysv_abi_default; sym_kSysv_abi_cdecl; sym_kVectorcall; sym_kVarargs; sym_kWinapi];
   ACTIONS 9601 [sym_kAlias]; ACTIONS 9576 [sym_kAsm; sym_kBegin; sym_kCase; sym_kClass;
   sym_kConst; sym_kConstructor; sym_kDestructor; sym_kExports; sym_kFor; sym_kFunction;
   sym_kGoto; sym_kIf; sym_kInherited]; ACTIONS 1016 [sym_kInline]; ACTIONS 9576 [sym_kLabel;
   sym_kNil; sym_kNot; sym_kProcedure; sym_kProperty; sym_kRaise; sym_kRepeat;
   sym_kResourcestring; sym_kString; sym_kThreadvar; sym_kTry; sym_kType; sym_kUses; sym_kVar;
   sym_kWhile; sym_kWith]].

(** State 963. *)
Definition ts_parse_table_963 : parse_row :=
  [STATE 1266 [sym__procAttribute]; STATE 15237 [sym_procAttribute];
   STATE 931 [aux_sym_declProcFwd_repeat1]; ACTIONS 9604 [anon_sym_SEMI; anon_sym_COMMA];
   ACTIONS 9606 [anon_sym_LBRACK]; ACTIONS 9609 [anon_sym_LPAREN];
   ACTIONS 9604 [aux_sym__literalString_token1; anon_sym_POUND];
   ACTIONS 9609 [aux_sym__literalInt_token1]; ACTIONS 9604 [aux_sym__literalInt_token2;
   aux_sym__literalInt_token3]; ACTIONS 9609 [aux_sym__literalFloat_token1];
   ACTIONS 9604 [aux_sym_ppUsesBlock_token1; aux_sym_ppUsesBlock_token2;
   aux_sym_ppUsesBlock_token3]; ACTIONS 9609 [sym_kAdd; sym_kSub]; ACTIONS 9604 [sym_kAt;
   sym_kTrue; sym_kFalse]; ACTIONS 3 [sym__space]; ACTIONS 5 [sym_ppDirective];
   ACTIONS 3 [sym_comment]; ACTIONS 9604 [sym_ppFragmentExpr; sym__literalStringMultiline;
   sym_identifier]; ACTIONS 9611 [sym_kDefault; sym_kNodefault]; ACTIONS 9614 [sym_kDispId];
   ACTIONS 9604 [sym_kGeneric; sym_kSpecialize; sym_kOperator]; ACTIONS 9617 [sym_kPublic];
   ACTIONS 9611 [sym_kStatic; sym_kVirtual; sym_kAbstract; sym_kDynamic; sym_kOverride;
   sym_kOverload; sym_kReintroduce; sym_kStdcall; sym_kCdecl; sym_kCppdecl; sym_kPascal;
   sym_kRegister; sym_kMwpascal]; ACTIONS 9620 [sym_kMessage]; ACTIONS 9623 [sym_kDeprecated];
   ACTIONS 9611 [sym_kExperimental; sym_kPlatform; sym_kUnimplemented; sym_kCvar];
   ACTIONS 9626 [sym_kExport]; ACTIONS 9611 [sym_kFar; sym_kNear; sym_kSafecall; sym_kAssembler;
   sym_kNostackframe; sym_kInterrupt; sym_kNoreturn; sym_kIocheck; sym_kLocal; sym_kHardfloat;
   sym_kSoftfloat; sym_kMs_abi_default; sym_kMs_abi_cdecl; sym_kSaveregisters;
   sym_kSysv_abi_default; sym_kSysv_abi_cdecl; sym_kVectorcall; sym_kVarargs; sym_kWinapi];
   ACTIONS 9629 [sym_kAlias]; ACTIONS 9604 [sym_kAsm; sym_kBegin; sym_kCase; sym_kClass;
   sym_kConst; sym_kConstructor; sym_kDestructor; sym_kExports; sym_kFor; sym_kFunction;
   sym_kGoto; sym_kIf; sym_kInherited]; ACTIONS 1016 [sym_kInline]; ACTIONS 9604 [sym_kLabel;
   sym_kNil; sym_kNot; sym_kProcedure; sym_kProperty; sym_kRaise; sym_kRepeat;
   sym_kResourcestring; sym_kString; sym_kThreadvar; sym_kTry; sym_kType; sym_kUses; sym_kVar;
   sym_kWhile; sym_kWith]].

(** State 964. *)
Definition ts_parse_table_964 : parse_row :=
  [STATE 6113 [sym_if]; STATE 6101 [sym_ifElse; sym_while; sym_repeat; sym_for; sym_foreach;
   sym_try; sym_case; sym_block; sym_asm; sym_with; sym_raise; sym_statement; sym_goto];
   STATE 6100 [sym_labeledStatement]; STATE 6101 [sym__statement]; STATE 13031 [sym_ifTr;
   sym_ifElseTr; sym_whileTr; sym_repeatTr; sym_forTr; sym_foreachTr; sym_tryTr; sym_caseTr];
   STATE 13296 [sym_blockTr]; STATE 13031 [sym_asmTr; sym_withTr; sym_raiseTr; sym_statementTr;
   sym_gotoTr]; STATE 13029 [sym_labeledStatementTr]; STATE 13031 [sym__statementTr];
   STATE 12733 [sym_assignment]; STATE 11883 [sym_varAssignDef]; STATE 12733 [sym_varDef;
   sym_constDef]; STATE 1186 [sym_label]; STATE 7784 [sym__expr; sym_exprConditional];
   STATE 7341 [sym__ref; sym_lambda; sym_inherited; sym_exprDot; sym_exprDeref; sym_exprAs;
   sym_exprTpl; sym_exprSubscript; sym_exprCall]; STATE 7784 [sym_exprBinary; sym_exprUnary];
   STATE 7341 [sym_exprParens; sym_exprBrackets; sym__literal; sym_literalString];
   STATE 6534 [sym__literalString; sym_literalChar]; STATE 7341 [sym_literalNumber];
   STATE 7552 [sym__literalInt; sym__literalFloat]; STATE 6534 [aux_sym_literalString_repeat1];
   ACTIONS 9632 [anon_sym_SEMI]; ACTIONS 9634 [anon_sym_LBRACK]; ACTIONS 9636 [anon_sym_LPAREN];
   ACTIONS 9638 [aux_sym__literalString_token1]; ACTIONS 9640 [anon_sym_POUND];
   ACTIONS 9642 [aux_sym__literalInt_token1]; ACTIONS 9644 [aux_sym__literalInt_token2;
   aux_sym__literalInt_token3]; ACTIONS 9642 [aux_sym__literalFloat_token1];
   ACTIONS 9646 [sym_kAdd; sym_kSub]; ACTIONS 9648 [sym_kAt]; ACTIONS 9650 [sym_kTrue;
   sym_kFalse]; ACTIONS 9652 [sym_labelNumber]; ACTIONS 3 [sym__space];
   ACTIONS 5 [sym_ppDirective]; ACTIONS 3 [sym_comment]; ACTIONS 9650 [sym_ppFragmentExpr];
   ACTIONS 9638 [sym__literalStringMultiline]; ACTIONS 9654 [sym_identifier];
   ACTIONS 9656 [sym_kSpecialize]; ACTIONS 9658 [sym_kAsm]; ACTIONS 9660 [sym_kBegin];
   ACTIONS 9662 [sym_kCase]; ACTIONS 9664 [sym_kConst]; ACTIONS 3286 [sym_kElse; sym_kEnd];
   ACTIONS 9666 [sym_kFor]; ACTIONS 9668 [sym_kFunction]; ACTIONS 9670 [sym_kGoto];
   ACTIONS 9672 [sym_kIf]; ACTIONS 9674 [sym_kInherited]; ACTIONS 9650 [sym_kNil];
   ACTIONS 9648 [sym_kNot]; ACTIONS 9668 [sym_kProcedure]; ACTIONS 9676 [sym_kRaise];
   ACTIONS 9678 [sym_kRepeat]; ACTIONS 9680 [sym_kString]; ACTIONS 9682 [sym_kTry];
   ACTIONS 9684 [sym_kVar]; ACTIONS 9686 [sym_kWhile]; ACTIONS 9688 [sym_kWith]].

(** State 965. *)
Definition ts_parse_table_965 : parse_row :=
  [STATE 6213 [sym_if]; STATE 6280 [sym_ifElse; sym_while; sym_repeat; sym_for; sym_foreach;
   sym_try; sym_case; sym_block; sym_asm; sym_with; sym_raise; sym_statement; sym_goto;
   sym_labeledStatement; sym__statement]; STATE 13203 [sym_ifTr; sym_ifElseTr; sym_whileTr;
   sym_repeatTr; sym_forTr; sym_foreachTr; sym_tryTr; sym_caseTr]; STATE 13296 [sym_blockTr];
   STATE 13203 [sym_asmTr; sym_withTr; sym_raiseTr; sym_statementTr; sym_gotoTr;
   sym_labeledStatementTr; sym__statementTr]; STATE 12751 [sym_assignment];
   STATE 11883 [sym_varAssignDef]; STATE 12751 [sym_varDef; sym_constDef];
   STATE 1133 [sym_label]; STATE 7864 [sym__expr; sym_exprConditional]; STATE 7341 [sym__ref;
   sym_lambda; sym_inherited; sym_exprDot; sym_exprDeref; sym_exprAs; sym_exprTpl;
   sym_exprSubscript; sym_exprCall]; STATE 7864 [sym_exprBinary; sym_exprUnary];
   STATE 7341 [sym_exprParens; sym_exprBrackets; sym__literal; sym_literalString];
   STATE 6534 [sym__literalString; sym_literalChar]; STATE 7341 [sym_literalNumber];
   STATE 7552 [sym__literalInt; sym__literalFloat]; STATE 6534 [aux_sym_literalString_repeat1];
   ACTIONS 9690 [anon_sym_SEMI]; ACTIONS 9634 [anon_sym_LBRACK]; ACTIONS 9636 [anon_sym_LPAREN];
   ACTIONS 9638 [aux_sym__literalString_token1]; ACTIONS 9640 [anon_sym_POUND];
   ACTIONS 9642 [aux_sym__literalInt_token1]; ACTIONS 9644 [aux_sym__literalInt_token2;
   aux_sym__literalInt_token3]; ACTIONS 9642 [aux_sym__literalFloat_token1];
   ACTIONS 9646 [sym_kAdd; sym_kSub]; ACTIONS 9648 [sym_kAt]; ACTIONS 9650 [sym_kTrue;
   sym_kFalse]; ACTIONS 9652 [sym_labelNumber]; ACTIONS 3 [sym__space];
   ACTIONS 5 [sym_ppDirective]; ACTIONS 3 [sym_comment]; ACTIONS 9650 [sym_ppFragmentExpr];
   ACTIONS 9638 [sym__literalStringMultiline]; ACTIONS 9654 [sym_identifier];
   ACTIONS 9656 [sym_kSpecialize]; ACTIONS 9692 [sym_kAsm]; ACTIONS 9694 [sym_kBegin];
   ACTIONS 9696 [sym_kCase]; ACTIONS 9664 [sym_kConst]; ACTIONS 3304 [sym_kElse; sym_kEnd];
   ACTIONS 9698 [sym_kFor]; ACTIONS 9668 [sym_kFunction]; ACTIONS 9700 [sym_kGoto];
   ACTIONS 9702 [sym_kIf]; ACTIONS 9674 [sym_kInherited]; ACTIONS 9650 [sym_kNil];
   ACTIONS 9648 [sym_kNot]; ACTIONS 9668 [sym_kProcedure]; ACTIONS 9704 [sym_kRaise];
   ACTIONS 9706 [sym_kRepeat]; ACTIONS 9680 [sym_kString]; ACTIONS 9708 [sym_kTry];
   ACTIONS 9684 [sym_kVar]; ACTIONS 9710 [sym_kWhile]; ACTIONS 9712 [sym_kWith]].

(** State 966. *)
Definition ts_parse_table_966 : parse_row :=
  [STATE 9071 [sym_if]; STATE 9348 [sym_ifElse; sym_while; sym_repeat; sym_for; sym_foreach;
   sym_try; sym_case; sym_block; sym_asm; sym_with; sym_raise; sym_statement; sym_goto;
   sym__statement]; STATE 12721 [sym_ifTr; sym_ifElseTr; sym_whileTr; sym_repeatTr; sym_forTr;
   sym_foreachTr; sym_tryTr; sym_caseTr]; STATE 12901 [sym_blockTr]; STATE 12721 [sym_asmTr;
   sym_withTr; sym_raiseTr; sym_statementTr; sym_gotoTr; sym__statementTr];
   STATE 12334 [sym_assignment]; STATE 11914 [sym_varAssignDef]; STATE 12334 [sym_varDef;
   sym_constDef]; STATE 5901 [sym_label]; STATE 7768 [sym__expr; sym_exprConditional];
   STATE 7138 [sym__ref; sym_lambda; sym_inherited; sym_exprDot; sym_exprDeref; sym_exprAs;
   sym_exprTpl; sym_exprSubscript; sym_exprCall]; STATE 7768 [sym_exprBinary; sym_exprUnary];
   STATE 7138 [sym_exprParens; sym_exprBrackets; sym__literal; sym_literalString];
   STATE 6388 [sym__literalString; sym_literalChar]; STATE 7138 [sym_literalNumber];
   STATE 7299 [sym__literalInt; sym__literalFloat];
   STATE 5901 [aux_sym_labeledStatement_repeat1]; STATE 6388 [aux_sym_literalString_repeat1];
   ACTIONS 9714 [anon_sym_SEMI]; ACTIONS 7968 [anon_sym_LBRACK]; ACTIONS 7970 [anon_sym_LPAREN];
   ACTIONS 7972 [aux_sym__literalString_token1]; ACTIONS 7974 [anon_sym_POUND];
   ACTIONS 7976 [aux_sym__literalInt_token1]; ACTIONS 7978 [aux_sym__literalInt_token2;
   aux_sym__literalInt_token3]; ACTIONS 7976 [aux_sym__literalFloat_token1];
   ACTIONS 7980 [sym_kAdd; sym_kSub]; ACTIONS 7982 [sym_kAt]; ACTIONS 7984 [sym_kTrue;
   sym_kFalse]; ACTIONS 7986 [sym_labelNumber]; ACTIONS 3 [sym__space];
   ACTIONS 5 [sym_ppDirective]; ACTIONS 3 [sym_comment]; ACTIONS 7984 [sym_ppFragmentExpr];
   ACTIONS 7972 [sym__literalStringMultiline]; ACTIONS 7988 [sym_identifier];
   ACTIONS 7990 [sym_kSpecialize]; ACTIONS 4439 [sym_kOtherwise]; ACTIONS 7994 [sym_kAsm];
   ACTIONS 7996 [sym_kBegin]; ACTIONS 7998 [sym_kCase]; ACTIONS 8000 [sym_kConst];
   ACTIONS 4439 [sym_kElse; sym_kEnd]; ACTIONS 8002 [sym_kFor]; ACTIONS 8004 [sym_kFunction];
   ACTIONS 8006 [sym_kGoto]; ACTIONS 8008 [sym_kIf]; ACTIONS 8010 [sym_kInherited];
   ACTIONS 7984 [sym_kNil]; ACTIONS 7982 [sym_kNot]; ACTIONS 8004 [sym_kProcedure];
   ACTIONS 8012 [sym_kRaise]; ACTIONS 8014 [sym_kRepeat]; ACTIONS 8016 [sym_kString];
   ACTIONS 8018 [sym_kTry]; ACTIONS 8020 [sym_kVar]; ACTIONS 8022 [sym_kWhile];
   ACTIONS 8024 [sym_kWith]].

(** State 967. *)
Definition ts_parse_table_967 : parse_row :=
  [STATE 12669 [sym_if]; STATE 12958 [sym_ifElse; sym_while; sym_repeat; sym_for; sym_foreach;
   sym_try; sym_case; sym_block; sym_asm; sym_with; sym_raise; sym_statement; sym_goto;
   sym_labeledStatement; sym__statement]; STATE 14001 [sym_ifTr; sym_ifElseTr; sym_whileTr;
   sym_repeatTr; sym_forTr; sym_foreachTr; sym_tryTr; sym_caseTr]; STATE 13296 [sym_blockTr];
   STATE 14001 [sym_asmTr; sym_withTr; sym_raiseTr; sym_statementTr; sym_gotoTr;
   sym_labeledStatementTr; sym__statementTr]; STATE 12775 [sym_assignment];
   STATE 11883 [sym_varAssignDef]; STATE 12775 [sym_varDef; sym_constDef];
   STATE 1170 [sym_label]; STATE 7815 [sym__expr; sym_exprConditional]; STATE 7341 [sym__ref;
   sym_lambda; sym_inherited; sym_exprDot; sym_exprDeref; sym_exprAs; sym_exprTpl;
   sym_exprSubscript; sym_exprCall]; STATE 7815 [sym_exprBinary; sym_exprUnary];
   STATE 7341 [sym_exprParens; sym_exprBrackets; sym__literal; sym_literalString];
   STATE 6534 [sym__literalString; sym_literalChar]; STATE 7341 [sym_literalNumber];
   STATE 7552 [sym__literalInt; sym__literalFloat]; STATE 6534 [aux_sym_literalString_repeat1];
   ACTIONS 9716 [anon_sym_SEMI]; ACTIONS 9634 [anon_sym_LBRACK]; ACTIONS 9636 [anon_sym_LPAREN];
   ACTIONS 9638 [aux_sym__literalString_token1]; ACTIONS 9640 [anon_sym_POUND];
   ACTIONS 9642 [aux_sym__literalInt_token1]; ACTIONS 9644 [aux_sym__literalInt_token2;
   aux_sym__literalInt_token3]; ACTIONS 9642 [aux_sym__literalFloat_token1];
   ACTIONS 9646 [sym_kAdd; sym_kSub]; ACTIONS 9648 [sym_kAt]; ACTIONS 9650 [sym_kTrue;
   sym_kFalse]; ACTIONS 9652 [sym_labelNumber]; ACTIONS 3 [sym__space];
   ACTIONS 5 [sym_ppDirective]; ACTIONS 3 [sym_comment]; ACTIONS 9650 [sym_ppFragmentExpr];
   ACTIONS 9638 [sym__literalStringMultiline]; ACTIONS 9654 [sym_identifier];
   ACTIONS 9656 [sym_kSpecialize]; ACTIONS 9718 [sym_kAsm]; ACTIONS 9720 [sym_kBegin];
   ACTIONS 9722 [sym_kCase]; ACTIONS 9664 [sym_kConst]; ACTIONS 9724 [sym_kElse; sym_kEnd];
   ACTIONS 9726 [sym_kFor]; ACTIONS 9668 [sym_kFunction]; ACTIONS 9728 [sym_kGoto];
   ACTIONS 9730 [sym_kIf]; ACTIONS 9674 [sym_kInherited]; ACTIONS 9650 [sym_kNil];
   ACTIONS 9648 [sym_kNot]; ACTIONS 9668 [sym_kProcedure]; ACTIONS 9732 [sym_kRaise];
   ACTIONS 9734 [sym_kRepeat]; ACTIONS 9680 [sym_kString]; ACTIONS 9736 [sym_kTry];
   ACTIONS 9684 [sym_kVar]; ACTIONS 9738 [sym_kWhile]; ACTIONS 9740 [sym_kWith]].

(** State 968. *)
Definition ts_parse_table_968 : parse_row :=
  [STATE 6128 [sym_if]; STATE 6155 [sym_ifElse; sym_while; sym_repeat; sym_for; sym_foreach;
   sym_try; sym_case; sym_block; sym_asm; sym_with; sym_raise; sym_statement; sym_goto;
   sym_labeledStatement; sym__statement]; STATE 13222 [sym_ifTr; sym_ifElseTr; sym_whileTr;
   sym_repeatTr; sym_forTr; sym_foreachTr; sym_tryTr; sym_caseTr]; STATE 13296 [sym_blockTr];
   STATE 13222 [sym_asmTr; sym_withTr; sym_raiseTr; sym_statementTr; sym_gotoTr;
   sym_labeledStatementTr; sym__statementTr]; STATE 12751 [sym_assignment];
   STATE 11883 [sym_varAssignDef]; STATE 12751 [sym_varDef; sym_constDef];
   STATE 1133 [sym_label]; STATE 7916 [sym__expr; sym_exprConditional]; STATE 7341 [sym__ref;
   sym_lambda; sym_inherited; sym_exprDot; sym_exprDeref; sym_exprAs; sym_exprTpl;
   sym_exprSubscript; sym_exprCall]; STATE 7916 [sym_exprBinary; sym_exprUnary];
   STATE 7341 [sym_exprParens; sym_exprBrackets; sym__literal; sym_literalString];
   STATE 6534 [sym__literalString; sym_literalChar]; STATE 7341 [sym_literalNumber];
   STATE 7552 [sym__literalInt; sym__literalFloat]; STATE 6534 [aux_sym_literalString_repeat1];
   ACTIONS 9742 [anon_sym_SEMI]; ACTIONS 9634 [anon_sym_LBRACK]; ACTIONS 9636 [anon_sym_LPAREN];
   ACTIONS 9638 [aux_sym__literalString_token1]; ACTIONS 9640 [anon_sym_POUND];
   ACTIONS 9642 [aux_sym__literalInt_token1]; ACTIONS 9644 [aux_sym__literalInt_token2;
   aux_sym__literalInt_token3]; ACTIONS 9642 [aux_sym__literalFloat_token1];
   ACTIONS 9646 [sym_kAdd; sym_kSub]; ACTIONS 9648 [sym_kAt]; ACTIONS 9650 [sym_kTrue;
   sym_kFalse]; ACTIONS 9652 [sym_labelNumber]; ACTIONS 3 [sym__space];
   ACTIONS 5 [sym_ppDirective]; ACTIONS 3 [sym_comment]; ACTIONS 9650 [sym_ppFragmentExpr];
   ACTIONS 9638 [sym__literalStringMultiline]; ACTIONS 9654 [sym_identifier];
   ACTIONS 9656 [sym_kSpecialize]; ACTIONS 9692 [sym_kAsm]; ACTIONS 9694 [sym_kBegin];
   ACTIONS 9696 [sym_kCase]; ACTIONS 9664 [sym_kConst]; ACTIONS 9744 [sym_kElse];
   ACTIONS 3230 [sym_kEnd]; ACTIONS 9698 [sym_kFor]; ACTIONS 9668 [sym_kFunction];
   ACTIONS 9700 [sym_kGoto]; ACTIONS 9746 [sym_kIf]; ACTIONS 9674 [sym_kInherited];
   ACTIONS 9650 [sym_kNil]; ACTIONS 9648 [sym_kNot]; ACTIONS 9668 [sym_kProcedure];
   ACTIONS 9704 [sym_kRaise]; ACTIONS 9706 [sym_kRepeat]; ACTIONS 9680 [sym_kString];
   ACTIONS 9708 [sym_kTry]; ACTIONS 9684 [sym_kVar]; ACTIONS 9710 [sym_kWhile];
   ACTIONS 9712 [sym_kWith]].

(** State 969. *)
Definition ts_parse_table_969 : parse_row :=
  [STATE 6025 [sym_if]; STATE 6124 [sym_ifElse; sym_while; sym_repeat; sym_for; sym_foreach;
   sym_try; sym_case; sym_block; sym_asm; sym_with; sym_raise; sym_statement; sym_goto;
   sym_labeledStatement; sym__statement]; STATE 13183 [sym_ifTr; sym_ifElseTr; sym_whileTr;
   sym_repeatTr; sym_forTr; sym_foreachTr; sym_tryTr; sym_caseTr]; STATE 13296 [sym_blockTr];
   STATE 13183 [sym_asmTr; sym_withTr; sym_raiseTr; sym_statementTr; sym_gotoTr;
   sym_labeledStatementTr; sym__statementTr]; STATE 12733 [sym_assignment];
   STATE 11883 [sym_varAssignDef]; STATE 12733 [sym_varDef; sym_constDef];
   STATE 1186 [sym_label]; STATE 7891 [sym__expr; sym_exprConditional]; STATE 7341 [sym__ref;
   sym_lambda; sym_inherited; sym_exprDot; sym_exprDeref; sym_exprAs; sym_exprTpl;
   sym_exprSubscript; sym_exprCall]; STATE 7891 [sym_exprBinary; sym_exprUnary];
   STATE 7341 [sym_exprParens; sym_exprBrackets; sym__literal; sym_literalString];
   STATE 6534 [sym__literalString; sym_literalChar]; STATE 7341 [sym_literalNumber];
   STATE 7552 [sym__literalInt; sym__literalFloat]; STATE 6534 [aux_sym_literalString_repeat1];
   ACTIONS 9748 [anon_sym_SEMI]; ACTIONS 9634 [anon_sym_LBRACK]; ACTIONS 9636 [anon_sym_LPAREN];
   ACTIONS 9638 [aux_sym__literalString_token1]; ACTIONS 9640 [anon_sym_POUND];
   ACTIONS 9642 [aux_sym__literalInt_token1]; ACTIONS 9644 [aux_sym__literalInt_token2;
   aux_sym__literalInt_token3]; ACTIONS 9642 [aux_sym__literalFloat_token1];
   ACTIONS 9646 [sym_kAdd; sym_kSub]; ACTIONS 9648 [sym_kAt]; ACTIONS 9650 [sym_kTrue;
   sym_kFalse]; ACTIONS 9652 [sym_labelNumber]; ACTIONS 3 [sym__space];
   ACTIONS 5 [sym_ppDirective]; ACTIONS 3 [sym_comment]; ACTIONS 9650 [sym_ppFragmentExpr];
   ACTIONS 9638 [sym__literalStringMultiline]; ACTIONS 9654 [sym_identifier];
   ACTIONS 9656 [sym_kSpecialize]; ACTIONS 9658 [sym_kAsm]; ACTIONS 9660 [sym_kBegin];
   ACTIONS 9662 [sym_kCase]; ACTIONS 9664 [sym_kConst]; ACTIONS 9750 [sym_kElse];
   ACTIONS 3230 [sym_kEnd]; ACTIONS 9666 [sym_kFor]; ACTIONS 9668 [sym_kFunction];
   ACTIONS 9670 [sym_kGoto]; ACTIONS 9672 [sym_kIf]; ACTIONS 9674 [sym_kInherited];
   ACTIONS 9650 [sym_kNil]; ACTIONS 9648 [sym_kNot]; ACTIONS 9668 [sym_kProcedure];
   ACTIONS 9676 [sym_kRaise]; ACTIONS 9678 [sym_kRepeat]; ACTIONS 9680 [sym_kString];
   ACTIONS 9682 [sym_kTry]; ACTIONS 9684 [sym_kVar]; ACTIONS 9686 [sym_kWhile];
   ACTIONS 9688 [sym_kWith]].

(** State 970. *)
Definition ts_parse_table_970 : parse_row :=
  [STATE 6052 [sym_if]; STATE 6042 [sym_ifElse; sym_while; sym_repeat; sym_for; sym_foreach;
   sym_try; sym_case; sym_block; sym_asm; sym_with; sym_raise; sym_statement; sym_goto;
   sym_labeledStatement; sym__statement]; STATE 13001 [sym_ifTr; sym_ifElseTr; sym_whileTr;
   sym_repeatTr; sym_forTr; sym_foreachTr; sym_tryTr; sym_caseTr]; STATE 13195 [sym_blockTr];
   STATE 13001 [sym_asmTr; sym_withTr; sym_raiseTr; sym_statementTr; sym_gotoTr;
   sym_labeledStatementTr; sym__statementTr]; STATE 12583 [sym_assignment];
   STATE 11921 [sym_varAssignDef]; STATE 12583 [sym_varDef; sym_constDef];
   STATE 1094 [sym_label]; STATE 7850 [sym__expr; sym_exprConditional]; STATE 7326 [sym__ref;
   sym_lambda; sym_inherited; sym_exprDot; sym_exprDeref; sym_exprAs; sym_exprTpl;
   sym_exprSubscript; sym_exprCall]; STATE 7850 [sym_exprBinary; sym_exprUnary];
   STATE 7326 [sym_exprParens; sym_exprBrackets; sym__literal; sym_literalString];
   STATE 6591 [sym__literalString; sym_literalChar]; STATE 7326 [sym_literalNumber];
   STATE 7474 [sym__literalInt; sym__literalFloat]; STATE 6591 [aux_sym_literalString_repeat1];
   ACTIONS 9752 [anon_sym_SEMI]; ACTIONS 9754 [anon_sym_LBRACK]; ACTIONS 9756 [anon_sym_LPAREN];
   ACTIONS 9758 [aux_sym__literalString_token1]; ACTIONS 9760 [anon_sym_POUND];
   ACTIONS 9762 [aux_sym__literalInt_token1]; ACTIONS 9764 [aux_sym__literalInt_token2;
   aux_sym__literalInt_token3]; ACTIONS 9762 [aux_sym__literalFloat_token1];
   ACTIONS 9766 [sym_kAdd; sym_kSub]; ACTIONS 9768 [sym_kAt]; ACTIONS 9770 [sym_kTrue;
   sym_kFalse]; ACTIONS 9772 [sym_labelNumber]; ACTIONS 3 [sym__space];
   ACTIONS 5 [sym_ppDirective]; ACTIONS 3 [sym_comment]; ACTIONS 9770 [sym_ppFragmentExpr];
   ACTIONS 9758 [sym__literalStringMultiline]; ACTIONS 9774 [sym_identifier];
   ACTIONS 9776 [sym_kSpecialize]; ACTIONS 9778 [sym_kAsm]; ACTIONS 9780 [sym_kBegin];
   ACTIONS 9782 [sym_kCase]; ACTIONS 9784 [sym_kConst]; ACTIONS 3296 [sym_kElse];
   ACTIONS 9786 [sym_kFor]; ACTIONS 9788 [sym_kFunction]; ACTIONS 9790 [sym_kGoto];
   ACTIONS 9792 [sym_kIf]; ACTIONS 9794 [sym_kInherited]; ACTIONS 9770 [sym_kNil];
   ACTIONS 9768 [sym_kNot]; ACTIONS 9788 [sym_kProcedure]; ACTIONS 9796 [sym_kRaise];
   ACTIONS 9798 [sym_kRepeat]; ACTIONS 9800 [sym_kString]; ACTIONS 9802 [sym_kTry];
   ACTIONS 3296 [sym_kUntil]; ACTIONS 9804 [sym_kVar]; ACTIONS 9806 [sym_kWhile];
   ACTIONS 9808 [sym_kWith]].

(** State 971. *)
Definition ts_parse_table_971 : parse_row :=
  [ACTIONS 9810 [anon_sym_SEMI; anon_sym_COMMA; anon_sym_LBRACK]; ACTIONS 9812 [anon_sym_LPAREN];
   ACTIONS 9810 [aux_sym__literalString_token1; anon_sym_POUND];
   ACTIONS 9812 [aux_sym__literalInt_token1]; ACTIONS 9810 [aux_sym__literalInt_token2;
   aux_sym__literalInt_token3]; ACTIONS 9812 [aux_sym__literalFloat_token1];
   ACTIONS 9810 [aux_sym_ppUsesBlock_token1; aux_sym_ppUsesBlock_token2;
   aux_sym_ppUsesBlock_token3]; ACTIONS 9812 [sym_kAdd; sym_kSub]; ACTIONS 9810 [sym_kAt;
   sym_kTrue; sym_kFalse]; ACTIONS 3 [sym__space]; ACTIONS 5 [sym_ppDirective];
   ACTIONS 3 [sym_comment]; ACTIONS 9810 [sym_ppFragmentExpr; sym__literalStringMultiline;
   sym_identifier; sym_kDefault; sym_kNodefault; sym_kDispId; sym_kGeneric; sym_kSpecialize;
   sym_kOperator; sym_kPublic; sym_kForward; sym_kStatic; sym_kVirtual; sym_kAbstract;
   sym_kDynamic; sym_kOverride; sym_kOverload; sym_kReintroduce; sym_kStdcall; sym_kCdecl;
   sym_kCppdecl; sym_kPascal; sym_kRegister; sym_kMwpascal; sym_kExternal; sym_kMessage;
   sym_kDeprecated; sym_kExperimental; sym_kPlatform; sym_kUnimplemented; sym_kCvar; sym_kExport;
   sym_kFar; sym_kNear; sym_kSafecall; sym_kAssembler; sym_kNostackframe; sym_kInterrupt;
   sym_kNoreturn; sym_kIocheck; sym_kLocal; sym_kHardfloat; sym_kSoftfloat; sym_kMs_abi_default;
   sym_kMs_abi_cdecl; sym_kSaveregisters; sym_kSysv_abi_default; sym_kSysv_abi_cdecl;
   sym_kVectorcall; sym_kVarargs; sym_kWinapi; sym_kAlias; sym_kAsm; sym_kBegin; sym_kCase;
   sym_kClass; sym_kConst; sym_kConstructor; sym_kDestructor; sym_kExports; sym_kFor;
   sym_kFunction; sym_kGoto; sym_kIf; sym_kInherited; sym_kInline; sym_kLabel; sym_kNil;
   sym_kNot; sym_kProcedure; sym_kProperty; sym_kRaise; sym_kRepeat; sym_kResourcestring;
   sym_kString; sym_kThreadvar; sym_kTry; sym_kType; sym_kUses; sym_kVar; sym_kWhile; sym_kWith]].

(** State 972. *)
Definition ts_parse_table_972 : parse_row :=
  [STATE 6052 [sym_if]; STATE 6043 [sym_ifElse; sym_while; sym_repeat; sym_for; sym_foreach;
   sym_try; sym_case; sym_block; sym_asm; sym_with; sym_raise; sym_statement; sym_goto;
   sym_labeledStatement; sym__statement]; STATE 13016 [sym_ifTr; sym_ifElseTr; sym_whileTr;
   sym_repeatTr; sym_forTr; sym_foreachTr; sym_tryTr; sym_caseTr]; STATE 13195 [sym_blockTr];
   STATE 13016 [sym_asmTr; sym_withTr; sym_raiseTr; sym_statementTr; sym_gotoTr;
   sym_labeledStatementTr; sym__statementTr]; STATE 12583 [sym_assignment];
   STATE 11921 [sym_varAssignDef]; STATE 12583 [sym_varDef; sym_constDef];
   STATE 1094 [sym_label]; STATE 7850 [sym__expr; sym_exprConditional]; STATE 7326 [sym__ref;
   sym_lambda; sym_inherited; sym_exprDot; sym_exprDeref; sym_exprAs; sym_exprTpl;
   sym_exprSubscript; sym_exprCall]; STATE 7850 [sym_exprBinary; sym_exprUnary];
   STATE 7326 [sym_exprParens; sym_exprBrackets; sym__literal; sym_literalString];
   STATE 6591 [sym__literalString; sym_literalChar]; STATE 7326 [sym_literalNumber];
   STATE 7474 [sym__literalInt; sym__literalFloat]; STATE 6591 [aux_sym_literalString_repeat1];
   ACTIONS 9814 [anon_sym_SEMI]; ACTIONS 9754 [anon_sym_LBRACK]; ACTIONS 9756 [anon_sym_LPAREN];
   ACTIONS 9758 [aux_sym__literalString_token1]; ACTIONS 9760 [anon_sym_POUND];
   ACTIONS 9762 [aux_sym__literalInt_token1]; ACTIONS 9764 [aux_sym__literalInt_token2;
   aux_sym__literalInt_token3]; ACTIONS 9762 [aux_sym__literalFloat_token1];
   ACTIONS 9766 [sym_kAdd; sym_kSub]; ACTIONS 9768 [sym_kAt]; ACTIONS 9770 [sym_kTrue;
   sym_kFalse]; ACTIONS 9772 [sym_labelNumber]; ACTIONS 3 [sym__space];
   ACTIONS 5 [sym_ppDirective]; ACTIONS 3 [sym_comment]; ACTIONS 9770 [sym_ppFragmentExpr];
   ACTIONS 9758 [sym__literalStringMultiline]; ACTIONS 9774 [sym_identifier];
   ACTIONS 9776 [sym_kSpecialize]; ACTIONS 9778 [sym_kAsm]; ACTIONS 9780 [sym_kBegin];
   ACTIONS 9782 [sym_kCase]; ACTIONS 9784 [sym_kConst]; ACTIONS 3304 [sym_kElse];
   ACTIONS 9786 [sym_kFor]; ACTIONS 9788 [sym_kFunction]; ACTIONS 9790 [sym_kGoto];
   ACTIONS 9792 [sym_kIf]; ACTIONS 9794 [sym_kInherited]; ACTIONS 9770 [sym_kNil];
   ACTIONS 9768 [sym_kNot]; ACTIONS 9788 [sym_kProcedure]; ACTIONS 9796 [sym_kRaise];
   ACTIONS 9798 [sym_kRepeat]; ACTIONS 9800 [sym_kString]; ACTIONS 9802 [sym_kTry];
   ACTIONS 3304 [sym_kUntil]; ACTIONS 9804 [sym_kVar]; ACTIONS 9806 [sym_kWhile];
   ACTIONS 9808 [sym_kWith]].

(** State 973. *)
Definition ts_parse_table_973 : parse_row :=
  [STATE 6052 [sym_if]; STATE 6024 [sym_ifElse; sym_while; sym_repeat; sym_for; sym_foreach;
   sym_try; sym_case; sym_block; sym_asm; sym_with; sym_raise; sym_statement; sym_goto;
   sym_labeledStatement; sym__statement]; STATE 13924 [sym_ifTr; sym_ifElseTr; sym_whileTr;
   sym_repeatTr; sym_forTr; sym_foreachTr; sym_tryTr; sym_caseTr]; STATE 13195 [sym_blockTr];
   STATE 13924 [sym_asmTr; sym_withTr; sym_raiseTr; sym_statementTr; sym_gotoTr;
   sym_labeledStatementTr; sym__statementTr]; STATE 12583 [sym_assignment];
   STATE 11921 [sym_varAssignDef]; STATE 12583 [sym_varDef; sym_constDef];
   STATE 1094 [sym_label]; STATE 7850 [sym__expr; sym_exprConditional]; STATE 7326 [sym__ref;
   sym_lambda; sym_inherited; sym_exprDot; sym_exprDeref; sym_exprAs; sym_exprTpl;
   sym_exprSubscript; sym_exprCall]; STATE 7850 [sym_exprBinary; sym_exprUnary];
   STATE 7326 [sym_exprParens; sym_exprBrackets; sym__literal; sym_literalString];
   STATE 6591 [sym__literalString; sym_literalChar]; STATE 7326 [sym_literalNumber];
   STATE 7474 [sym__literalInt; sym__literalFloat]; STATE 6591 [aux_sym_literalString_repeat1];
   ACTIONS 9816 [anon_sym_SEMI]; ACTIONS 9754 [anon_sym_LBRACK]; ACTIONS 9756 [anon_sym_LPAREN];
   ACTIONS 9758 [aux_sym__literalString_token1]; ACTIONS 9760 [anon_sym_POUND];
   ACTIONS 9762 [aux_sym__literalInt_token1]; ACTIONS 9764 [aux_sym__literalInt_token2;
   aux_sym__literalInt_token3]; ACTIONS 9762 [aux_sym__literalFloat_token1];
   ACTIONS 9766 [sym_kAdd; sym_kSub]; ACTIONS 9768 [sym_kAt]; ACTIONS 9770 [sym_kTrue;
   sym_kFalse]; ACTIONS 9772 [sym_labelNumber]; ACTIONS 3 [sym__space];
   ACTIONS 5 [sym_ppDirective]; ACTIONS 3 [sym_comment]; ACTIONS 9770 [sym_ppFragmentExpr];
   ACTIONS 9758 [sym__literalStringMultiline]; ACTIONS 9774 [sym_identifier];
   ACTIONS 9776 [sym_kSpecialize]; ACTIONS 9778 [sym_kAsm]; ACTIONS 9780 [sym_kBegin];
   ACTIONS 9782 [sym_kCase]; ACTIONS 9784 [sym_kConst]; ACTIONS 3278 [sym_kElse];
   ACTIONS 9786 [sym_kFor]; ACTIONS 9788 [sym_kFunction]; ACTIONS 9790 [sym_kGoto];
   ACTIONS 9792 [sym_kIf]; ACTIONS 9794 [sym_kInherited]; ACTIONS 9770 [sym_kNil];
   ACTIONS 9768 [sym_kNot]; ACTIONS 9788 [sym_kProcedure]; ACTIONS 9796 [sym_kRaise];
   ACTIONS 9798 [sym_kRepeat]; ACTIONS 9800 [sym_kString]; ACTIONS 9802 [sym_kTry];
   ACTIONS 3278 [sym_kUntil]; ACTIONS 9804 [sym_kVar]; ACTIONS 9806 [sym_kWhile];
   ACTIONS 9808 [sym_kWith]].

(** State 974. *)
Definition ts_parse_table_974 : parse_row :=
  [STATE 5885 [sym_if]; STATE 5933 [sym_ifElse; sym_while; sym_repeat; sym_for; sym_foreach;
   sym_try; sym_case; sym_block; sym_asm; sym_with; sym_raise; sym_statement; sym_goto;
   sym__statement]; STATE 12835 [sym_ifTr; sym_ifElseTr; sym_whileTr; sym_repeatTr; sym_forTr;
   sym_foreachTr; sym_tryTr; sym_caseTr]; STATE 12758 [sym_blockTr]; STATE 12835 [sym_asmTr;
   sym_withTr; sym_raiseTr; sym_statementTr; sym_gotoTr; sym__statementTr];
   STATE 12111 [sym_assignment]; STATE 11928 [sym_varAssignDef]; STATE 12111 [sym_varDef;
   sym_constDef]; STATE 5954 [sym_label]; STATE 7752 [sym__expr; sym_exprConditional];
   STATE 7153 [sym__ref; sym_lambda; sym_inherited; sym_exprDot; sym_exprDeref; sym_exprAs;
   sym_exprTpl; sym_exprSubscript; sym_exprCall]; STATE 7752 [sym_exprBinary; sym_exprUnary];
   STATE 7153 [sym_exprParens; sym_exprBrackets; sym__literal; sym_literalString];
   STATE 6416 [sym__literalString; sym_literalChar]; STATE 7153 [sym_literalNumber];
   STATE 7250 [sym__literalInt; sym__literalFloat];
   STATE 5954 [aux_sym_labeledStatement_repeat1]; STATE 6416 [aux_sym_literalString_repeat1];
   ACTIONS 9818 [anon_sym_SEMI]; ACTIONS 7422 [anon_sym_LBRACK]; ACTIONS 7424 [anon_sym_LPAREN];
   ACTIONS 7426 [aux_sym__literalString_token1]; ACTIONS 7428 [anon_sym_POUND];
   ACTIONS 7430 [aux_sym__literalInt_token1]; ACTIONS 7432 [aux_sym__literalInt_token2;
   aux_sym__literalInt_token3]; ACTIONS 7430 [aux_sym__literalFloat_token1];
   ACTIONS 7434 [sym_kAdd; sym_kSub]; ACTIONS 7436 [sym_kAt]; ACTIONS 7438 [sym_kTrue;
   sym_kFalse]; ACTIONS 7440 [sym_labelNumber]; ACTIONS 3 [sym__space];
   ACTIONS 5 [sym_ppDirective]; ACTIONS 3 [sym_comment]; ACTIONS 7438 [sym_ppFragmentExpr];
   ACTIONS 7426 [sym__literalStringMultiline]; ACTIONS 7442 [sym_identifier];
   ACTIONS 7444 [sym_kSpecialize]; ACTIONS 7446 [sym_kAsm]; ACTIONS 7448 [sym_kBegin];
   ACTIONS 7450 [sym_kCase]; ACTIONS 7452 [sym_kConst]; ACTIONS 4439 [sym_kElse; sym_kExcept;
   sym_kFinally]; ACTIONS 7454 [sym_kFor]; ACTIONS 7456 [sym_kFunction];
   ACTIONS 7458 [sym_kGoto]; ACTIONS 7460 [sym_kIf]; ACTIONS 7462 [sym_kInherited];
   ACTIONS 7438 [sym_kNil]; ACTIONS 7436 [sym_kNot]; ACTIONS 7456 [sym_kProcedure];
   ACTIONS 7464 [sym_kRaise]; ACTIONS 7466 [sym_kRepeat]; ACTIONS 7468 [sym_kString];
   ACTIONS 7470 [sym_kTry]; ACTIONS 7472 [sym_kVar]; ACTIONS 7474 [sym_kWhile];
   ACTIONS 7476 [sym_kWith]].

(** State 975. *)
Definition ts_parse_table_975 : parse_row :=
  [STATE 6052 [sym_if]; STATE 6027 [sym_ifElse; sym_while; sym_repeat; sym_for; sym_foreach;
   sym_try; sym_case; sym_block; sym_asm; sym_with; sym_raise; sym_statement; sym_goto;
   sym_labeledStatement; sym__statement]; STATE 13297 [sym_ifTr; sym_ifElseTr; sym_whileTr;
   sym_repeatTr; sym_forTr; sym_foreachTr; sym_tryTr; sym_caseTr]; STATE 13195 [sym_blockTr];
   STATE 13297 [sym_asmTr; sym_withTr; sym_raiseTr; sym_statementTr; sym_gotoTr;
   sym_labeledStatementTr; sym__statementTr]; STATE 12583 [sym_assignment];
   STATE 11921 [sym_varAssignDef]; STATE 12583 [sym_varDef; sym_constDef];
   STATE 1094 [sym_label]; STATE 7850 [sym__expr; sym_exprConditional]; STATE 7326 [sym__ref;
   sym_lambda; sym_inherited; sym_exprDot; sym_exprDeref; sym_exprAs; sym_exprTpl;
   sym_exprSubscript; sym_exprCall]; STATE 7850 [sym_exprBinary; sym_exprUnary];
   STATE 7326 [sym_exprParens; sym_exprBrackets; sym__literal; sym_literalString];
   STATE 6591 [sym__literalString; sym_literalChar]; STATE 7326 [sym_literalNumber];
   STATE 7474 [sym__literalInt; sym__literalFloat]; STATE 6591 [aux_sym_literalString_repeat1];
   ACTIONS 9820 [anon_sym_SEMI]; ACTIONS 9754 [anon_sym_LBRACK]; ACTIONS 9756 [anon_sym_LPAREN];
   ACTIONS 9758 [aux_sym__literalString_token1]; ACTIONS 9760 [anon_sym_POUND];
   ACTIONS 9762 [aux_sym__literalInt_token1]; ACTIONS 9764 [aux_sym__literalInt_token2;
   aux_sym__literalInt_token3]; ACTIONS 9762 [aux_sym__literalFloat_token1];
   ACTIONS 9766 [sym_kAdd; sym_kSub]; ACTIONS 9768 [sym_kAt]; ACTIONS 9770 [sym_kTrue;
   sym_kFalse]; ACTIONS 9772 [sym_labelNumber]; ACTIONS 3 [sym__space];
   ACTIONS 5 [sym_ppDirective]; ACTIONS 3 [sym_comment]; ACTIONS 9770 [sym_ppFragmentExpr];
   ACTIONS 9758 [sym__literalStringMultiline]; ACTIONS 9774 [sym_identifier];
   ACTIONS 9776 [sym_kSpecialize]; ACTIONS 9778 [sym_kAsm]; ACTIONS 9780 [sym_kBegin];
   ACTIONS 9782 [sym_kCase]; ACTIONS 9784 [sym_kConst]; ACTIONS 3282 [sym_kElse];
   ACTIONS 9786 [sym_kFor]; ACTIONS 9788 [sym_kFunction]; ACTIONS 9790 [sym_kGoto];
   ACTIONS 9792 [sym_kIf]; ACTIONS 9794 [sym_kInherited]; ACTIONS 9770 [sym_kNil];
   ACTIONS 9768 [sym_kNot]; ACTIONS 9788 [sym_kProcedure]; ACTIONS 9796 [sym_kRaise];
   ACTIONS 9798 [sym_kRepeat]; ACTIONS 9800 [sym_kString]; ACTIONS 9802 [sym_kTry];
   ACTIONS 3282 [sym_kUntil]; ACTIONS 9804 [sym_kVar]; ACTIONS 9806 [sym_kWhile];
   ACTIONS 9808 [sym_kWith]].

(** State 976. *)
Definition ts_parse_table_976 : parse_row :=
  [ACTIONS 9822 [anon_sym_SEMI; anon_sym_COMMA; anon_sym_LBRACK]; ACTIONS 9824 [anon_sym_LPAREN];
   ACTIONS 9822 [aux_sym__literalString_token1; anon_sym_POUND];
   ACTIONS 9824 [aux_sym__literalInt_token1]; ACTIONS 9822 [aux_sym__literalInt_token2;
   aux_sym__literalInt_token3]; ACTIONS 9824 [aux_sym__literalFloat_token1];
   ACTIONS 9822 [aux_sym_ppUsesBlock_token1; aux_sym_ppUsesBlock_token2;
   aux_sym_ppUsesBlock_token3]; ACTIONS 9824 [sym_kAdd; sym_kSub]; ACTIONS 9822 [sym_kAt;
   sym_kTrue; sym_kFalse]; ACTIONS 3 [sym__space]; ACTIONS 5 [sym_ppDirective];
   ACTIONS 3 [sym_comment]; ACTIONS 9822 [sym_ppFragmentExpr; sym__literalStringMultiline;
   sym_identifier; sym_kDefault; sym_kNodefault; sym_kDispId; sym_kGeneric; sym_kSpecialize;
   sym_kOperator; sym_kPublic; sym_kForward; sym_kStatic; sym_kVirtual; sym_kAbstract;
   sym_kDynamic; sym_kOverride; sym_kOverload; sym_kReintroduce; sym_kStdcall; sym_kCdecl;
   sym_kCppdecl; sym_kPascal; sym_kRegister; sym_kMwpascal; sym_kExternal; sym_kMessage;
   sym_kDeprecated; sym_kExperimental; sym_kPlatform; sym_kUnimplemented; sym_kCvar; sym_kExport;
   sym_kFar; sym_kNear; sym_kSafecall; sym_kAssembler; sym_kNostackframe; sym_kInterrupt;
   sym_kNoreturn; sym_kIocheck; sym_kLocal; sym_kHardfloat; sym_kSoftfloat; sym_kMs_abi_default;
   sym_kMs_abi_cdecl; sym_kSaveregisters; sym_kSysv_abi_default; sym_kSysv_abi_cdecl;
   sym_kVectorcall; sym_kVarargs; sym_kWinapi; sym_kAlias; sym_kAsm; sym_kBegin; sym_kCase;
   sym_kClass; sym_kConst; sym_kConstructor; sym_kDestructor; sym_kExports; sym_kFor;
   sym_kFunction; sym_kGoto; sym_kIf; sym_kInherited; sym_kInline; sym_kLabel; sym_kNil;
   sym_kNot; sym_kProcedure; sym_kProperty; sym_kRaise; sym_kRepeat; sym_kResourcestring;
   sym_kString; sym_kThreadvar; sym_kTry; sym_kType; sym_kUses; sym_kVar; sym_kWhile; sym_kWith]].

(** State 977. *)
Definition ts_parse_table_977 : parse_row :=
  [STATE 6132 [sym_if]; STATE 6055 [sym_ifElse; sym_while; sym_repeat; sym_for; sym_foreach;
   sym_try; sym_case; sym_block; sym_asm; sym_with; sym_raise; sym_statement; sym_goto;
   sym_labeledStatement; sym__statement]; STATE 12994 [sym_ifTr; sym_ifElseTr; sym_whileTr;
   sym_repeatTr; sym_forTr; sym_foreachTr; sym_tryTr; sym_caseTr]; STATE 13195 [sym_blockTr];
   STATE 12994 [sym_asmTr; sym_withTr; sym_raiseTr; sym_statementTr; sym_gotoTr;
   sym_labeledStatementTr; sym__statementTr]; STATE 12583 [sym_assignment];
   STATE 11921 [sym_varAssignDef]; STATE 12583 [sym_varDef; sym_constDef];
   STATE 1094 [sym_label]; STATE 7833 [sym__expr; sym_exprConditional]; STATE 7326 [sym__ref;
   sym_lambda; sym_inherited; sym_exprDot; sym_exprDeref; sym_exprAs; sym_exprTpl;
   sym_exprSubscript; sym_exprCall]; STATE 7833 [sym_exprBinary; sym_exprUnary];
   STATE 7326 [sym_exprParens; sym_exprBrackets; sym__literal; sym_literalString];
   STATE 6591 [sym__literalString; sym_literalChar]; STATE 7326 [sym_literalNumber];
   STATE 7474 [sym__literalInt; sym__literalFloat]; STATE 6591 [aux_sym_literalString_repeat1];
   ACTIONS 9826 [anon_sym_SEMI]; ACTIONS 9754 [anon_sym_LBRACK]; ACTIONS 9756 [anon_sym_LPAREN];
   ACTIONS 9758 [aux_sym__literalString_token1]; ACTIONS 9760 [anon_sym_POUND];
   ACTIONS 9762 [aux_sym__literalInt_token1]; ACTIONS 9764 [aux_sym__literalInt_token2;
   aux_sym__literalInt_token3]; ACTIONS 9762 [aux_sym__literalFloat_token1];
   ACTIONS 9766 [sym_kAdd; sym_kSub]; ACTIONS 9768 [sym_kAt]; ACTIONS 9770 [sym_kTrue;
   sym_kFalse]; ACTIONS 9772 [sym_labelNumber]; ACTIONS 3 [sym__space];
   ACTIONS 5 [sym_ppDirective]; ACTIONS 3 [sym_comment]; ACTIONS 9770 [sym_ppFragmentExpr];
   ACTIONS 9758 [sym__literalStringMultiline]; ACTIONS 9774 [sym_identifier];
   ACTIONS 9776 [sym_kSpecialize]; ACTIONS 9778 [sym_kAsm]; ACTIONS 9780 [sym_kBegin];
   ACTIONS 9782 [sym_kCase]; ACTIONS 9784 [sym_kConst]; ACTIONS 9828 [sym_kElse];
   ACTIONS 9786 [sym_kFor]; ACTIONS 9788 [sym_kFunction]; ACTIONS 9790 [sym_kGoto];
   ACTIONS 9792 [sym_kIf]; ACTIONS 9794 [sym_kInherited]; ACTIONS 9770 [sym_kNil];
   ACTIONS 9768 [sym_kNot]; ACTIONS 9788 [sym_kProcedure]; ACTIONS 9796 [sym_kRaise];
   ACTIONS 9798 [sym_kRepeat]; ACTIONS 9800 [sym_kString]; ACTIONS 9802 [sym_kTry];
   ACTIONS 3230 [sym_kUntil]; ACTIONS 9804 [sym_kVar]; ACTIONS 9806 [sym_kWhile];
   ACTIONS 9808 [sym_kWith]].

(** State 978. *)
Definition ts_parse_table_978 : parse_row :=
  [STATE 6053 [sym_if]; STATE 6055 [sym_ifElse; sym_while; sym_repeat; sym_for; sym_foreach;
   sym_try; sym_case; sym_block; sym_asm; sym_with; sym_raise; sym_statement; sym_goto;
   sym_labeledStatement; sym__statement]; STATE 14026 [sym_ifTr; sym_ifElseTr; sym_whileTr;
   sym_repeatTr; sym_forTr; sym_foreachTr; sym_tryTr; sym_caseTr]; STATE 13195 [sym_blockTr];
   STATE 14026 [sym_asmTr; sym_withTr; sym_raiseTr; sym_statementTr; sym_gotoTr;
   sym_labeledStatementTr; sym__statementTr]; STATE 12583 [sym_assignment];
   STATE 11921 [sym_varAssignDef]; STATE 12583 [sym_varDef; sym_constDef];
   STATE 1094 [sym_label]; STATE 7833 [sym__expr; sym_exprConditional]; STATE 7326 [sym__ref;
   sym_lambda; sym_inherited; sym_exprDot; sym_exprDeref; sym_exprAs; sym_exprTpl;
   sym_exprSubscript; sym_exprCall]; STATE 7833 [sym_exprBinary; sym_exprUnary];
   STATE 7326 [sym_exprParens; sym_exprBrackets; sym__literal; sym_literalString];
   STATE 6591 [sym__literalString; sym_literalChar]; STATE 7326 [sym_literalNumber];
   STATE 7474 [sym__literalInt; sym__literalFloat]; STATE 6591 [aux_sym_literalString_repeat1];
   ACTIONS 9826 [anon_sym_SEMI]; ACTIONS 9754 [anon_sym_LBRACK]; ACTIONS 9756 [anon_sym_LPAREN];
   ACTIONS 9758 [aux_sym__literalString_token1]; ACTIONS 9760 [anon_sym_POUND];
   ACTIONS 9762 [aux_sym__literalInt_token1]; ACTIONS 9764 [aux_sym__literalInt_token2;
   aux_sym__literalInt_token3]; ACTIONS 9762 [aux_sym__literalFloat_token1];
   ACTIONS 9766 [sym_kAdd; sym_kSub]; ACTIONS 9768 [sym_kAt]; ACTIONS 9770 [sym_kTrue;
   sym_kFalse]; ACTIONS 9772 [sym_labelNumber]; ACTIONS 3 [sym__space];
   ACTIONS 5 [sym_ppDirective]; ACTIONS 3 [sym_comment]; ACTIONS 9770 [sym_ppFragmentExpr];
   ACTIONS 9758 [sym__literalStringMultiline]; ACTIONS 9774 [sym_identifier];
   ACTIONS 9776 [sym_kSpecialize]; ACTIONS 9778 [sym_kAsm]; ACTIONS 9780 [sym_kBegin];
   ACTIONS 9782 [sym_kCase]; ACTIONS 9784 [sym_kConst]; ACTIONS 9830 [sym_kElse];
   ACTIONS 9786 [sym_kFor]; ACTIONS 9788 [sym_kFunction]; ACTIONS 9790 [sym_kGoto];
   ACTIONS 9792 [sym_kIf]; ACTIONS 9794 [sym_kInherited]; ACTIONS 9770 [sym_kNil];
   ACTIONS 9768 [sym_kNot]; ACTIONS 9788 [sym_kProcedure]; ACTIONS 9796 [sym_kRaise];
   ACTIONS 9798 [sym_kRepeat]; ACTIONS 9800 [sym_kString]; ACTIONS 9802 [sym_kTry];
   ACTIONS 3230 [sym_kUntil]; ACTIONS 9804 [sym_kVar]; ACTIONS 9806 [sym_kWhile];
   ACTIONS 9808 [sym_kWith]].

(** State 979. *)
Definition ts_parse_table_979 : parse_row :=
  [STATE 6052 [sym_if]; STATE 6036 [sym_ifElse; sym_while; sym_repeat; sym_for; sym_foreach;
   sym_try; sym_case; sym_block; sym_asm; sym_with; sym_raise; sym_statement; sym_goto];
   STATE 6035 [sym_labeledStatement]; STATE 6036 [sym__statement]; STATE 13664 [sym_ifTr;
   sym_ifElseTr; sym_whileTr; sym_repeatTr; sym_forTr; sym_foreachTr; sym_tryTr; sym_caseTr];
   STATE 13195 [sym_blockTr]; STATE 13664 [sym_asmTr; sym_withTr; sym_raiseTr; sym_statementTr;
   sym_gotoTr]; STATE 13661 [sym_labeledStatementTr]; STATE 13664 [sym__statementTr];
   STATE 12583 [sym_assignment]; STATE 11921 [sym_varAssignDef]; STATE 12583 [sym_varDef;
   sym_constDef]; STATE 1094 [sym_label]; STATE 7850 [sym__expr; sym_exprConditional];
   STATE 7326 [sym__ref; sym_lambda; sym_inherited; sym_exprDot; sym_exprDeref; sym_exprAs;
   sym_exprTpl; sym_exprSubscript; sym_exprCall]; STATE 7850 [sym_exprBinary; sym_exprUnary];
   STATE 7326 [sym_exprParens; sym_exprBrackets; sym__literal; sym_literalString];
   STATE 6591 [sym__literalString; sym_literalChar]; STATE 7326 [sym_literalNumber];
   STATE 7474 [sym__literalInt; sym__literalFloat]; STATE 6591 [aux_sym_literalString_repeat1];
   ACTIONS 9832 [anon_sym_SEMI]; ACTIONS 9754 [anon_sym_LBRACK]; ACTIONS 9756 [anon_sym_LPAREN];
   ACTIONS 9758 [aux_sym__literalString_token1]; ACTIONS 9760 [anon_sym_POUND];
   ACTIONS 9762 [aux_sym__literalInt_token1]; ACTIONS 9764 [aux_sym__literalInt_token2;
   aux_sym__literalInt_token3]; ACTIONS 9762 [aux_sym__literalFloat_token1];
   ACTIONS 9766 [sym_kAdd; sym_kSub]; ACTIONS 9768 [sym_kAt]; ACTIONS 9770 [sym_kTrue;
   sym_kFalse]; ACTIONS 9772 [sym_labelNumber]; ACTIONS 3 [sym__space];
   ACTIONS 5 [sym_ppDirective]; ACTIONS 3 [sym_comment]; ACTIONS 9770 [sym_ppFragmentExpr];
   ACTIONS 9758 [sym__literalStringMultiline]; ACTIONS 9774 [sym_identifier];
   ACTIONS 9776 [sym_kSpecialize]; ACTIONS 9778 [sym_kAsm]; ACTIONS 9780 [sym_kBegin];
   ACTIONS 9782 [sym_kCase]; ACTIONS 9784 [sym_kConst]; ACTIONS 3286 [sym_kElse];
   ACTIONS 9786 [sym_kFor]; ACTIONS 9788 [sym_kFunction]; ACTIONS 9790 [sym_kGoto];
   ACTIONS 9792 [sym_kIf]; ACTIONS 9794 [sym_kInherited]; ACTIONS 9770 [sym_kNil];
   ACTIONS 9768 [sym_kNot]; ACTIONS 9788 [sym_kProcedure]; ACTIONS 9796 [sym_kRaise];
   ACTIONS 9798 [sym_kRepeat]; ACTIONS 9800 [sym_kString]; ACTIONS 9802 [sym_kTry];
   ACTIONS 3286 [sym_kUntil]; ACTIONS 9804 [sym_kVar]; ACTIONS 9806 [sym_kWhile];
   ACTIONS 9808 [sym_kWith]].

(** State 980. *)
Definition ts_parse_table_980 : parse_row :=
  [ACTIONS 9834 [anon_sym_SEMI; anon_sym_COMMA; anon_sym_LBRACK]; ACTIONS 9836 [anon_sym_LPAREN];
   ACTIONS 9834 [aux_sym__literalString_token1; anon_sym_POUND];
   ACTIONS 9836 [aux_sym__literalInt_token1]; ACTIONS 9834 [aux_sym__literalInt_token2;
   aux_sym__literalInt_token3]; ACTIONS 9836 [aux_sym__literalFloat_token1];
   ACTIONS 9834 [aux_sym_ppUsesBlock_token1; aux_sym_ppUsesBlock_token2;
   aux_sym_ppUsesBlock_token3]; ACTIONS 9836 [sym_kAdd; sym_kSub]; ACTIONS 9834 [sym_kAt;
   sym_kTrue; sym_kFalse]; ACTIONS 3 [sym__space]; ACTIONS 5 [sym_ppDirective];
   ACTIONS 3 [sym_comment]; ACTIONS 9834 [sym_ppFragmentExpr; sym__literalStringMultiline;
   sym_identifier; sym_kDefault; sym_kNodefault; sym_kDispId; sym_kGeneric; sym_kSpecialize;
   sym_kOperator; sym_kPublic; sym_kForward; sym_kStatic; sym_kVirtual; sym_kAbstract;
   sym_kDynamic; sym_kOverride; sym_kOverload; sym_kReintroduce; sym_kStdcall; sym_kCdecl;
   sym_kCppdecl; sym_kPascal; sym_kRegister; sym_kMwpascal; sym_kExternal; sym_kMessage;
   sym_kDeprecated; sym_kExperimental; sym_kPlatform; sym_kUnimplemented; sym_kCvar; sym_kExport;
   sym_kFar; sym_kNear; sym_kSafecall; sym_kAssembler; sym_kNostackframe; sym_kInterrupt;
   sym_kNoreturn; sym_kIocheck; sym_kLocal; sym_kHardfloat; sym_kSoftfloat; sym_kMs_abi_default;
   sym_kMs_abi_cdecl; sym_kSaveregisters; sym_kSysv_abi_default; sym_kSysv_abi_cdecl;
   sym_kVectorcall; sym_kVarargs; sym_kWinapi; sym_kAlias; sym_kAsm; sym_kBegin; sym_kCase;
   sym_kClass; sym_kConst; sym_kConstructor; sym_kDestructor; sym_kExports; sym_kFor;
   sym_kFunction; sym_kGoto; sym_kIf; sym_kInherited; sym_kInline; sym_kLabel; sym_kNil;
   sym_kNot; sym_kProcedure; sym_kProperty; sym_kRaise; sym_kRepeat; sym_kResourcestring;
   sym_kString; sym_kThreadvar; sym_kTry; sym_kType; sym_kUses; sym_kVar; sym_kWhile; sym_kWith]].

(** State 981. *)
Definition ts_parse_table_981 : parse_row :=
  [ACTIONS 9838 [anon_sym_SEMI; anon_sym_COMMA; anon_sym_LBRACK]; ACTIONS 9840 [anon_sym_LPAREN];
   ACTIONS 9838 [aux_sym__literalString_token1; anon_sym_POUND];
   ACTIONS 9840 [aux_sym__literalInt_token1]; ACTIONS 9838 [aux_sym__literalInt_token2;
   aux_sym__literalInt_token3]; ACTIONS 9840 [aux_sym__literalFloat_token1];
   ACTIONS 9838 [aux_sym_ppUsesBlock_token1; aux_sym_ppUsesBlock_token2;
   aux_sym_ppUsesBlock_token3]; ACTIONS 9840 [sym_kAdd; sym_kSub]; ACTIONS 9838 [sym_kAt;
   sym_kTrue; sym_kFalse]; ACTIONS 3 [sym__space]; ACTIONS 5 [sym_ppDirective];
   ACTIONS 3 [sym_comment]; ACTIONS 9838 [sym_ppFragmentExpr; sym__literalStringMultiline;
   sym_identifier; sym_kDefault; sym_kNodefault; sym_kDispId; sym_kGeneric; sym_kSpecialize;
   sym_kOperator; sym_kPublic; sym_kForward; sym_kStatic; sym_kVirtual; sym_kAbstract;
   sym_kDynamic; sym_kOverride; sym_kOverload; sym_kReintroduce; sym_kStdcall; sym_kCdecl;
   sym_kCppdecl; sym_kPascal; sym_kRegister; sym_kMwpascal; sym_kExternal; sym_kMessage;
   sym_kDeprecated; sym_kExperimental; sym_kPlatform; sym_kUnimplemented; sym_kCvar; sym_kExport;
   sym_kFar; sym_kNear; sym_kSafecall; sym_kAssembler; sym_kNostackframe; sym_kInterrupt;
   sym_kNoreturn; sym_kIocheck; sym_kLocal; sym_kHardfloat; sym_kSoftfloat; sym_kMs_abi_default;
   sym_kMs_abi_cdecl; sym_kSaveregisters; sym_kSysv_abi_default; sym_kSysv_abi_cdecl;
   sym_kVectorcall; sym_kVarargs; sym_kWinapi; sym_kAlias; sym_kAsm; sym_kBegin; sym_kCase;
   sym_kClass; sym_kConst; sym_kConstructor; sym_kDestructor; sym_kExports; sym_kFor;
   sym_kFunction; sym_kGoto; sym_kIf; sym_kInherited; sym_kInline; sym_kLabel; sym_kNil;
   sym_kNot; sym_kProcedure; sym_kProperty; sym_kRaise; sym_kRepeat; sym_kResourcestring;
   sym_kString; sym_kThreadvar; sym_kTry; sym_kType; sym_kUses; sym_kVar; sym_kWhile; sym_kWith]].

(** State 982. *)
Definition ts_parse_table_982 : parse_row :=
  [ACTIONS 9842 [anon_sym_SEMI; anon_sym_COMMA; anon_sym_LBRACK]; ACTIONS 9844 [anon_sym_LPAREN];
   ACTIONS 9842 [aux_sym__literalString_token1; anon_sym_POUND];
   ACTIONS 9844 [aux_sym__literalInt_token1]; ACTIONS 9842 [aux_sym__literalInt_token2;
   aux_sym__literalInt_token3]; ACTIONS 9844 [aux_sym__literalFloat_token1];
   ACTIONS 9842 [aux_sym_ppUsesBlock_token1; aux_sym_ppUsesBlock_token2;
   aux_sym_ppUsesBlock_token3]; ACTIONS 9844 [sym_kAdd; sym_kSub]; ACTIONS 9842 [sym_kAt;
   sym_kTrue; sym_kFalse]; ACTIONS 3 [sym__space]; ACTIONS 5 [sym_ppDirective];
   ACTIONS 3 [sym_comment]; ACTIONS 9842 [sym_ppFragmentExpr; sym__literalStringMultiline;
   sym_identifier; sym_kDefault; sym_kNodefault; sym_kDispId; sym_kGeneric; sym_kSpecialize;
   sym_kOperator; sym_kPublic; sym_kForward; sym_kStatic; sym_kVirtual; sym_kAbstract;
   sym_kDynamic; sym_kOverride; sym_kOverload; sym_kReintroduce; sym_kStdcall; sym_kCdecl;
   sym_kCppdecl; sym_kPascal; sym_kRegister; sym_kMwpascal; sym_kExternal; sym_kMessage;
   sym_kDeprecated; sym_kExperimental; sym_kPlatform; sym_kUnimplemented; sym_kCvar; sym_kExport;
   sym_kFar; sym_kNear; sym_kSafecall; sym_kAssembler; sym_kNostackframe; sym_kInterrupt;
   sym_kNoreturn; sym_kIocheck; sym_kLocal; sym_kHardfloat; sym_kSoftfloat; sym_kMs_abi_default;
   sym_kMs_abi_cdecl; sym_kSaveregisters; sym_kSysv_abi_default; sym_kSysv_abi_cdecl;
   sym_kVectorcall; sym_kVarargs; sym_kWinapi; sym_kAlias; sym_kAsm; sym_kBegin; sym_kCase;
   sym_kClass; sym_kConst; sym_kConstructor; sym_kDestructor; sym_kExports; sym_kFor;
   sym_kFunction; sym_kGoto; sym_kIf; sym_kInherited; sym_kInline; sym_kLabel; sym_kNil;
   sym_kNot; sym_kProcedure; sym_kProperty; sym_kRaise; sym_kRepeat; sym_kResourcestring;
   sym_kString; sym_kThreadvar; sym_kTry; sym_kType; sym_kUses; sym_kVar; sym_kWhile; sym_kWith]].

(** State 983. *)
Definition ts_parse_table_983 : parse_row :=
  [STATE 12669 [sym_if]; STATE 12591 [sym_ifElse; sym_while; sym_repeat; sym_for; sym_foreach;
   sym_try; sym_case; sym_block; sym_asm; sym_with; sym_raise; sym_statement; sym_goto;
   sym_labeledStatement; sym__statement]; STATE 13583 [sym_ifTr; sym_ifElseTr; sym_whileTr;
   sym_repeatTr; sym_forTr; sym_foreachTr; sym_tryTr; sym_caseTr]; STATE 13296 [sym_blockTr];
   STATE 13583 [sym_asmTr; sym_withTr; sym_raiseTr; sym_statementTr; sym_gotoTr;
   sym_labeledStatementTr; sym__statementTr]; STATE 12775 [sym_assignment];
   STATE 11883 [sym_varAssignDef]; STATE 12775 [sym_varDef; sym_constDef];
   STATE 1170 [sym_label]; STATE 7815 [sym__expr; sym_exprConditional]; STATE 7341 [sym__ref;
   sym_lambda; sym_inherited; sym_exprDot; sym_exprDeref; sym_exprAs; sym_exprTpl;
   sym_exprSubscript; sym_exprCall]; STATE 7815 [sym_exprBinary; sym_exprUnary];
   STATE 7341 [sym_exprParens; sym_exprBrackets; sym__literal; sym_literalString];
   STATE 6534 [sym__literalString; sym_literalChar]; STATE 7341 [sym_literalNumber];
   STATE 7552 [sym__literalInt; sym__literalFloat]; STATE 6534 [aux_sym_literalString_repeat1];
   ACTIONS 9846 [anon_sym_SEMI]; ACTIONS 9634 [anon_sym_LBRACK]; ACTIONS 9636 [anon_sym_LPAREN];
   ACTIONS 9638 [aux_sym__literalString_token1]; ACTIONS 9640 [anon_sym_POUND];
   ACTIONS 9642 [aux_sym__literalInt_token1]; ACTIONS 9644 [aux_sym__literalInt_token2;
   aux_sym__literalInt_token3]; ACTIONS 9642 [aux_sym__literalFloat_token1];
   ACTIONS 9646 [sym_kAdd; sym_kSub]; ACTIONS 9648 [sym_kAt]; ACTIONS 9650 [sym_kTrue;
   sym_kFalse]; ACTIONS 9652 [sym_labelNumber]; ACTIONS 3 [sym__space];
   ACTIONS 5 [sym_ppDirective]; ACTIONS 3 [sym_comment]; ACTIONS 9650 [sym_ppFragmentExpr];
   ACTIONS 9638 [sym__literalStringMultiline]; ACTIONS 9654 [sym_identifier];
   ACTIONS 9656 [sym_kSpecialize]; ACTIONS 9718 [sym_kAsm]; ACTIONS 9720 [sym_kBegin];
   ACTIONS 9722 [sym_kCase]; ACTIONS 9664 [sym_kConst]; ACTIONS 9848 [sym_kElse; sym_kEnd];
   ACTIONS 9726 [sym_kFor]; ACTIONS 9668 [sym_kFunction]; ACTIONS 9728 [sym_kGoto];
   ACTIONS 9730 [sym_kIf]; ACTIONS 9674 [sym_kInherited]; ACTIONS 9650 [sym_kNil];
   ACTIONS 9648 [sym_kNot]; ACTIONS 9668 [sym_kProcedure]; ACTIONS 9732 [sym_kRaise];
   ACTIONS 9734 [sym_kRepeat]; ACTIONS 9680 [sym_kString]; ACTIONS 9736 [sym_kTry];
   ACTIONS 9684 [sym_kVar]; ACTIONS 9738 [sym_kWhile]; ACTIONS 9740 [sym_kWith]].

(** State 984. *)
Definition ts_parse_table_984 : parse_row :=
  [ACTIONS 9850 [anon_sym_SEMI; anon_sym_COMMA; anon_sym_LBRACK]; ACTIONS 9852 [anon_sym_LPAREN];
   ACTIONS 9850 [aux_sym__literalString_token1; anon_sym_POUND];
   ACTIONS 9852 [aux_sym__literalInt_token1]; ACTIONS 9850 [aux_sym__literalInt_token2;
   aux_sym__literalInt_token3]; ACTIONS 9852 [aux_sym__literalFloat_token1];
   ACTIONS 9850 [aux_sym_ppUsesBlock_token1; aux_sym_ppUsesBlock_token2;
   aux_sym_ppUsesBlock_token3]; ACTIONS 9852 [sym_kAdd; sym_kSub]; ACTIONS 9850 [sym_kAt;
   sym_kTrue; sym_kFalse]; ACTIONS 3 [sym__space]; ACTIONS 5 [sym_ppDirective];
   ACTIONS 3 [sym_comment]; ACTIONS 9850 [sym_ppFragmentExpr; sym__literalStringMultiline;
   sym_identifier; sym_kDefault; sym_kNodefault; sym_kDispId; sym_kGeneric; sym_kSpecialize;
   sym_kOperator; sym_kPublic; sym_kForward; sym_kStatic; sym_kVirtual; sym_kAbstract;
   sym_kDynamic; sym_kOverride; sym_kOverload; sym_kReintroduce; sym_kStdcall; sym_kCdecl;
   sym_kCppdecl; sym_kPascal; sym_kRegister; sym_kMwpascal; sym_kExternal; sym_kMessage;
   sym_kDeprecated; sym_kExperimental; sym_kPlatform; sym_kUnimplemented; sym_kCvar; sym_kExport;
   sym_kFar; sym_kNear; sym_kSafecall; sym_kAssembler; sym_kNostackframe; sym_kInterrupt;
   sym_kNoreturn; sym_kIocheck; sym_kLocal; sym_kHardfloat; sym_kSoftfloat; sym_kMs_abi_default;
   sym_kMs_abi_cdecl; sym_kSaveregisters; sym_kSysv_abi_default; sym_kSysv_abi_cdecl;
   sym_kVectorcall; sym_kVarargs; sym_kWinapi; sym_kAlias; sym_kAsm; sym_kBegin; sym_kCase;
   sym_kClass; sym_kConst; sym_kConstructor; sym_kDestructor; sym_kExports; sym_kFor;
   sym_kFunction; sym_kGoto; sym_kIf; sym_kInherited; sym_kInline; sym_kLabel; sym_kNil;
   sym_kNot; sym_kProcedure; sym_kProperty; sym_kRaise; sym_kRepeat; sym_kResourcestring;
   sym_kString; sym_kThreadvar; sym_kTry; sym_kType; sym_kUses; sym_kVar; sym_kWhile; sym_kWith]].

(** State 985. *)
Definition ts_parse_table_985 : parse_row :=
  [ACTIONS 9850 [anon_sym_SEMI; anon_sym_COMMA; anon_sym_LBRACK]; ACTIONS 9852 [anon_sym_LPAREN];
   ACTIONS 9850 [aux_sym__literalString_token1; anon_sym_POUND];
   ACTIONS 9852 [aux_sym__literalInt_token1]; ACTIONS 9850 [aux_sym__literalInt_token2;
   aux_sym__literalInt_token3]; ACTIONS 9852 [aux_sym__literalFloat_token1];
   ACTIONS 9850 [aux_sym_ppUsesBlock_token1; aux_sym_ppUsesBlock_token2;
   aux_sym_ppUsesBlock_token3]; ACTIONS 9852 [sym_kAdd; sym_kSub]; ACTIONS 9850 [sym_kAt;
   sym_kTrue; sym_kFalse]; ACTIONS 3 [sym__space]; ACTIONS 5 [sym_ppDirective];
   ACTIONS 3 [sym_comment]; ACTIONS 9850 [sym_ppFragmentExpr; sym__literalStringMultiline;
   sym_identifier; sym_kDefault; sym_kNodefault; sym_kDispId; sym_kGeneric; sym_kSpecialize;
   sym_kOperator; sym_kPublic; sym_kForward; sym_kStatic; sym_kVirtual; sym_kAbstract;
   sym_kDynamic; sym_kOverride; sym_kOverload; sym_kReintroduce; sym_kStdcall; sym_kCdecl;
   sym_kCppdecl; sym_kPascal; sym_kRegister; sym_kMwpascal; sym_kExternal; sym_kMessage;
   sym_kDeprecated; sym_kExperimental; sym_kPlatform; sym_kUnimplemented; sym_kCvar; sym_kExport;
   sym_kFar; sym_kNear; sym_kSafecall; sym_kAssembler; sym_kNostackframe; sym_kInterrupt;
   sym_kNoreturn; sym_kIocheck; sym_kLocal; sym_kHardfloat; sym_kSoftfloat; sym_kMs_abi_default;
   sym_kMs_abi_cdecl; sym_kSaveregisters; sym_kSysv_abi_default; sym_kSysv_abi_cdecl;
   sym_kVectorcall; sym_kVarargs; sym_kWinapi; sym_kAlias; sym_kAsm; sym_kBegin; sym_kCase;
   sym_kClass; sym_kConst; sym_kConstructor; sym_kDestructor; sym_kExports; sym_kFor;
   sym_kFunction; sym_kGoto; sym_kIf; sym_kInherited; sym_kInline; sym_kLabel; sym_kNil;
   sym_kNot; sym_kProcedure; sym_kProperty; sym_kRaise; sym_kRepeat; sym_kResourcestring;
   sym_kString; sym_kThreadvar; sym_kTry; sym_kType; sym_kUses; sym_kVar; sym_kWhile; sym_kWith]].

(** State 986. *)
Definition ts_parse_table_986 : parse_row :=
  [STATE 12931 [sym_if]; STATE 12545 [sym_ifElse; sym_while; sym_repeat; sym_for; sym_foreach;
   sym_try; sym_case; sym_block; sym_asm; sym_with; sym_raise; sym_statement; sym_goto;
   sym_labeledStatement; sym__statement]; STATE 13526 [sym_ifTr; sym_ifElseTr; sym_whileTr;
   sym_repeatTr; sym_forTr; sym_foreachTr; sym_tryTr; sym_caseTr]; STATE 13296 [sym_blockTr];
   STATE 13526 [sym_asmTr; sym_withTr; sym_raiseTr; sym_statementTr; sym_gotoTr;
   sym_labeledStatementTr; sym__statementTr]; STATE 12775 [sym_assignment];
   STATE 11883 [sym_varAssignDef]; STATE 12775 [sym_varDef; sym_constDef];
   STATE 1170 [sym_label]; STATE 7783 [sym__expr; sym_exprConditional]; STATE 7341 [sym__ref;
   sym_lambda; sym_inherited; sym_exprDot; sym_exprDeref; sym_exprAs; sym_exprTpl;
   sym_exprSubscript; sym_exprCall]; STATE 7783 [sym_exprBinary; sym_exprUnary];
   STATE 7341 [sym_exprParens; sym_exprBrackets; sym__literal; sym_literalString];
   STATE 6534 [sym__literalString; sym_literalChar]; STATE 7341 [sym_literalNumber];
   STATE 7552 [sym__literalInt; sym__literalFloat]; STATE 6534 [aux_sym_literalString_repeat1];
   ACTIONS 9854 [anon_sym_SEMI]; ACTIONS 9634 [anon_sym_LBRACK]; ACTIONS 9636 [anon_sym_LPAREN];
   ACTIONS 9638 [aux_sym__literalString_token1]; ACTIONS 9640 [anon_sym_POUND];
   ACTIONS 9642 [aux_sym__literalInt_token1]; ACTIONS 9644 [aux_sym__literalInt_token2;
   aux_sym__literalInt_token3]; ACTIONS 9642 [aux_sym__literalFloat_token1];
   ACTIONS 9646 [sym_kAdd; sym_kSub]; ACTIONS 9648 [sym_kAt]; ACTIONS 9650 [sym_kTrue;
   sym_kFalse]; ACTIONS 9652 [sym_labelNumber]; ACTIONS 3 [sym__space];
   ACTIONS 5 [sym_ppDirective]; ACTIONS 3 [sym_comment]; ACTIONS 9650 [sym_ppFragmentExpr];
   ACTIONS 9638 [sym__literalStringMultiline]; ACTIONS 9654 [sym_identifier];
   ACTIONS 9656 [sym_kSpecialize]; ACTIONS 9718 [sym_kAsm]; ACTIONS 9720 [sym_kBegin];
   ACTIONS 9722 [sym_kCase]; ACTIONS 9664 [sym_kConst]; ACTIONS 9856 [sym_kElse];
   ACTIONS 3230 [sym_kEnd]; ACTIONS 9726 [sym_kFor]; ACTIONS 9668 [sym_kFunction];
   ACTIONS 9728 [sym_kGoto]; ACTIONS 9730 [sym_kIf]; ACTIONS 9674 [sym_kInherited];
   ACTIONS 9650 [sym_kNil]; ACTIONS 9648 [sym_kNot]; ACTIONS 9668 [sym_kProcedure];
   ACTIONS 9732 [sym_kRaise]; ACTIONS 9734 [sym_kRepeat]; ACTIONS 9680 [sym_kString];
   ACTIONS 9736 [sym_kTry]; ACTIONS 9684 [sym_kVar]; ACTIONS 9738 [sym_kWhile];
   ACTIONS 9740 [sym_kWith]].

(** State 987. *)
Definition ts_parse_table_987 : parse_row :=
  [ACTIONS 9858 [anon_sym_SEMI; anon_sym_COMMA; anon_sym_LBRACK]; ACTIONS 9860 [anon_sym_LPAREN];
   ACTIONS 9858 [aux_sym__literalString_token1; anon_sym_POUND];
   ACTIONS 9860 [aux_sym__literalInt_token1]; ACTIONS 9858 [aux_sym__literalInt_token2;
   aux_sym__literalInt_token3]; ACTIONS 9860 [aux_sym__literalFloat_token1];
   ACTIONS 9858 [aux_sym_ppUsesBlock_token1; aux_sym_ppUsesBlock_token2;
   aux_sym_ppUsesBlock_token3]; ACTIONS 9860 [sym_kAdd; sym_kSub]; ACTIONS 9858 [sym_kAt;
   sym_kTrue; sym_kFalse]; ACTIONS 3 [sym__space]; ACTIONS 5 [sym_ppDirective];
   ACTIONS 3 [sym_comment]; ACTIONS 9858 [sym_ppFragmentExpr; sym__literalStringMultiline;
   sym_identifier; sym_kDefault; sym_kNodefault; sym_kDispId; sym_kGeneric; sym_kSpecialize;
   sym_kOperator; sym_kPublic; sym_kForward; sym_kStatic; sym_kVirtual; sym_kAbstract;
   sym_kDynamic; sym_kOverride; sym_kOverload; sym_kReintroduce; sym_kStdcall; sym_kCdecl;
   sym_kCppdecl; sym_kPascal; sym_kRegister; sym_kMwpascal; sym_kExternal; sym_kMessage;
   sym_kDeprecated; sym_kExperimental; sym_kPlatform; sym_kUnimplemented; sym_kCvar; sym_kExport;
   sym_kFar; sym_kNear; sym_kSafecall; sym_kAssembler; sym_kNostackframe; sym_kInterrupt;
   sym_kNoreturn; sym_kIocheck; sym_kLocal; sym_kHardfloat; sym_kSoftfloat; sym_kMs_abi_default;
   sym_kMs_abi_cdecl; sym_kSaveregisters; sym_kSysv_abi_default; sym_kSysv_abi_cdecl;
   sym_kVectorcall; sym_kVarargs; sym_kWinapi; sym_kAlias; sym_kAsm; sym_kBegin; sym_kCase;
   sym_kClass; sym_kConst; sym_kConstructor; sym_kDestructor; sym_kExports; sym_kFor;
   sym_kFunction; sym_kGoto; sym_kIf; sym_kInherited; sym_kInline; sym_kLabel; sym_kNil;
   sym_kNot; sym_kProcedure; sym_kProperty; sym_kRaise; sym_kRepeat; sym_kResourcestring;
   sym_kString; sym_kThreadvar; sym_kTry; sym_kType; sym_kUses; sym_kVar; sym_kWhile; sym_kWith]].

(** State 988. *)
Definition ts_parse_table_988 : parse_row :=
  [STATE 6061 [sym_if]; STATE 6082 [sym_ifElse; sym_while; sym_repeat; sym_for; sym_foreach;
   sym_try; sym_case; sym_block; sym_asm; sym_with; sym_raise; sym_statement; sym_goto;
   sym_labeledStatement; sym__statement]; STATE 13385 [sym_ifTr; sym_ifElseTr; sym_whileTr;
   sym_repeatTr; sym_forTr; sym_foreachTr; sym_tryTr; sym_caseTr]; STATE 13949 [sym_blockTr];
   STATE 13385 [sym_asmTr; sym_withTr; sym_raiseTr; sym_statementTr; sym_gotoTr;
   sym_labeledStatementTr; sym__statementTr]; STATE 12950 [sym_assignment];
   STATE 11871 [sym_varAssignDef]; STATE 12950 [sym_varDef; sym_constDef];
   STATE 1146 [sym_label]; STATE 7879 [sym__expr; sym_exprConditional]; STATE 7259 [sym__ref;
   sym_lambda; sym_inherited; sym_exprDot; sym_exprDeref; sym_exprAs; sym_exprTpl;
   sym_exprSubscript; sym_exprCall]; STATE 7879 [sym_exprBinary; sym_exprUnary];
   STATE 7259 [sym_exprParens; sym_exprBrackets; sym__literal; sym_literalString];
   STATE 6541 [sym__literalString; sym_literalChar]; STATE 7259 [sym_literalNumber];
   STATE 7426 [sym__literalInt; sym__literalFloat]; STATE 6541 [aux_sym_literalString_repeat1];
   ACTIONS 9364 [anon_sym_SEMI]; ACTIONS 673 [anon_sym_LBRACK]; ACTIONS 675 [anon_sym_LPAREN];
   ACTIONS 677 [aux_sym__literalString_token1]; ACTIONS 679 [anon_sym_POUND];
   ACTIONS 681 [aux_sym__literalInt_token1]; ACTIONS 683 [aux_sym__literalInt_token2;
   aux_sym__literalInt_token3]; ACTIONS 681 [aux_sym__literalFloat_token1];
   ACTIONS 685 [sym_kAdd; sym_kSub]; ACTIONS 687 [sym_kAt]; ACTIONS 689 [sym_kTrue; sym_kFalse];
   ACTIONS 9862 [sym_labelNumber]; ACTIONS 3 [sym__space]; ACTIONS 5 [sym_ppDirective];
   ACTIONS 3 [sym_comment]; ACTIONS 689 [sym_ppFragmentExpr];
   ACTIONS 677 [sym__literalStringMultiline]; ACTIONS 9864 [sym_identifier];
   ACTIONS 695 [sym_kSpecialize]; ACTIONS 697 [sym_kAsm]; ACTIONS 699 [sym_kBegin];
   ACTIONS 701 [sym_kCase]; ACTIONS 703 [sym_kConst]; ACTIONS 3272 [sym_kExcept; sym_kFinally];
   ACTIONS 709 [sym_kFor]; ACTIONS 711 [sym_kFunction]; ACTIONS 713 [sym_kGoto];
   ACTIONS 715 [sym_kIf]; ACTIONS 717 [sym_kInherited]; ACTIONS 689 [sym_kNil];
   ACTIONS 687 [sym_kNot]; ACTIONS 711 [sym_kProcedure]; ACTIONS 719 [sym_kRaise];
   ACTIONS 721 [sym_kRepeat]; ACTIONS 723 [sym_kString]; ACTIONS 725 [sym_kTry];
   ACTIONS 727 [sym_kVar]; ACTIONS 729 [sym_kWhile]; ACTIONS 731 [sym_kWith]].

(** State 989. *)
Definition ts_parse_table_989 : parse_row :=
  [STATE 6061 [sym_if]; STATE 6010 [sym_ifElse; sym_while; sym_repeat; sym_for; sym_foreach;
   sym_try; sym_case; sym_block; sym_asm; sym_with; sym_raise; sym_statement; sym_goto;
   sym_labeledStatement; sym__statement]; STATE 13465 [sym_ifTr; sym_ifElseTr; sym_whileTr;
   sym_repeatTr; sym_forTr; sym_foreachTr; sym_tryTr; sym_caseTr]; STATE 13949 [sym_blockTr];
   STATE 13465 [sym_asmTr; sym_withTr; sym_raiseTr; sym_statementTr; sym_gotoTr;
   sym_labeledStatementTr; sym__statementTr]; STATE 12950 [sym_assignment];
   STATE 11871 [sym_varAssignDef]; STATE 12950 [sym_varDef; sym_constDef];
   STATE 1146 [sym_label]; STATE 7879 [sym__expr; sym_exprConditional]; STATE 7259 [sym__ref;
   sym_lambda; sym_inherited; sym_exprDot; sym_exprDeref; sym_exprAs; sym_exprTpl;
   sym_exprSubscript; sym_exprCall]; STATE 7879 [sym_exprBinary; sym_exprUnary];
   STATE 7259 [sym_exprParens; sym_exprBrackets; sym__literal; sym_literalString];
   STATE 6541 [sym__literalString; sym_literalChar]; STATE 7259 [sym_literalNumber];
   STATE 7426 [sym__literalInt; sym__literalFloat]; STATE 6541 [aux_sym_literalString_repeat1];
   ACTIONS 9368 [anon_sym_SEMI]; ACTIONS 673 [anon_sym_LBRACK]; ACTIONS 675 [anon_sym_LPAREN];
   ACTIONS 677 [aux_sym__literalString_token1]; ACTIONS 679 [anon_sym_POUND];
   ACTIONS 681 [aux_sym__literalInt_token1]; ACTIONS 683 [aux_sym__literalInt_token2;
   aux_sym__literalInt_token3]; ACTIONS 681 [aux_sym__literalFloat_token1];
   ACTIONS 685 [sym_kAdd; sym_kSub]; ACTIONS 687 [sym_kAt]; ACTIONS 689 [sym_kTrue; sym_kFalse];
   ACTIONS 9862 [sym_labelNumber]; ACTIONS 3 [sym__space]; ACTIONS 5 [sym_ppDirective];
   ACTIONS 3 [sym_comment]; ACTIONS 689 [sym_ppFragmentExpr];
   ACTIONS 677 [sym__literalStringMultiline]; ACTIONS 9864 [sym_identifier];
   ACTIONS 695 [sym_kSpecialize]; ACTIONS 697 [sym_kAsm]; ACTIONS 699 [sym_kBegin];
   ACTIONS 701 [sym_kCase]; ACTIONS 703 [sym_kConst]; ACTIONS 3278 [sym_kExcept; sym_kFinally];
   ACTIONS 709 [sym_kFor]; ACTIONS 711 [sym_kFunction]; ACTIONS 713 [sym_kGoto];
   ACTIONS 715 [sym_kIf]; ACTIONS 717 [sym_kInherited]; ACTIONS 689 [sym_kNil];
   ACTIONS 687 [sym_kNot]; ACTIONS 711 [sym_kProcedure]; ACTIONS 719 [sym_kRaise];
   ACTIONS 721 [sym_kRepeat]; ACTIONS 723 [sym_kString]; ACTIONS 725 [sym_kTry];
   ACTIONS 727 [sym_kVar]; ACTIONS 729 [sym_kWhile]; ACTIONS 731 [sym_kWith]].

(** State 990. *)
Definition ts_parse_table_990 : parse_row :=
  [STATE 6061 [sym_if]; STATE 6007 [sym_ifElse; sym_while; sym_repeat; sym_for; sym_foreach;
   sym_try; sym_case; sym_block; sym_asm; sym_with; sym_raise; sym_statement; sym_goto;
   sym_labeledStatement; sym__statement]; STATE 13434 [sym_ifTr; sym_ifElseTr; sym_whileTr;
   sym_repeatTr; sym_forTr; sym_foreachTr; sym_tryTr; sym_caseTr]; STATE 13949 [sym_blockTr];
   STATE 13434 [sym_asmTr; sym_withTr; sym_raiseTr; sym_statementTr; sym_gotoTr;
   sym_labeledStatementTr; sym__statementTr]; STATE 12950 [sym_assignment];
   STATE 11871 [sym_varAssignDef]; STATE 12950 [sym_varDef; sym_constDef];
   STATE 1146 [sym_label]; STATE 7879 [sym__expr; sym_exprConditional]; STATE 7259 [sym__ref;
   sym_lambda; sym_inherited; sym_exprDot; sym_exprDeref; sym_exprAs; sym_exprTpl;
   sym_exprSubscript; sym_exprCall]; STATE 7879 [sym_exprBinary; sym_exprUnary];
   STATE 7259 [sym_exprParens; sym_exprBrackets; sym__literal; sym_literalString];
   STATE 6541 [sym__literalString; sym_literalChar]; STATE 7259 [sym_literalNumber];
   STATE 7426 [sym__literalInt; sym__literalFloat]; STATE 6541 [aux_sym_literalString_repeat1];
   ACTIONS 9370 [anon_sym_SEMI]; ACTIONS 673 [anon_sym_LBRACK]; ACTIONS 675 [anon_sym_LPAREN];
   ACTIONS 677 [aux_sym__literalString_token1]; ACTIONS 679 [anon_sym_POUND];
   ACTIONS 681 [aux_sym__literalInt_token1]; ACTIONS 683 [aux_sym__literalInt_token2;
   aux_sym__literalInt_token3]; ACTIONS 681 [aux_sym__literalFloat_token1];
   ACTIONS 685 [sym_kAdd; sym_kSub]; ACTIONS 687 [sym_kAt]; ACTIONS 689 [sym_kTrue; sym_kFalse];
   ACTIONS 9862 [sym_labelNumber]; ACTIONS 3 [sym__space]; ACTIONS 5 [sym_ppDirective];
   ACTIONS 3 [sym_comment]; ACTIONS 689 [sym_ppFragmentExpr];
   ACTIONS 677 [sym__literalStringMultiline]; ACTIONS 9864 [sym_identifier];
   ACTIONS 695 [sym_kSpecialize]; ACTIONS 697 [sym_kAsm]; ACTIONS 699 [sym_kBegin];
   ACTIONS 701 [sym_kCase]; ACTIONS 703 [sym_kConst]; ACTIONS 3282 [sym_kExcept; sym_kFinally];
   ACTIONS 709 [sym_kFor]; ACTIONS 711 [sym_kFunction]; ACTIONS 713 [sym_kGoto];
   ACTIONS 715 [sym_kIf]; ACTIONS 717 [sym_kInherited]; ACTIONS 689 [sym_kNil];
   ACTIONS 687 [sym_kNot]; ACTIONS 711 [sym_kProcedure]; ACTIONS 719 [sym_kRaise];
   ACTIONS 721 [sym_kRepeat]; ACTIONS 723 [sym_kString]; ACTIONS 725 [sym_kTry];
   ACTIONS 727 [sym_kVar]; ACTIONS 729 [sym_kWhile]; ACTIONS 731 [sym_kWith]].

(** State 991. *)
Definition ts_parse_table_991 : parse_row :=
  [STATE 6061 [sym_if]; STATE 6135 [sym_ifElse; sym_while; sym_repeat; sym_for; sym_foreach;
   sym_try; sym_case; sym_block; sym_asm; sym_with; sym_raise; sym_statement; sym_goto];
   STATE 6085 [sym_labeledStatement]; STATE 6135 [sym__statement]; STATE 13571 [sym_ifTr;
   sym_ifElseTr; sym_whileTr; sym_repeatTr; sym_forTr; sym_foreachTr; sym_tryTr; sym_caseTr];
   STATE 13949 [sym_blockTr]; STATE 13571 [sym_asmTr; sym_withTr; sym_raiseTr; sym_statementTr;
   sym_gotoTr]; STATE 13568 [sym_labeledStatementTr]; STATE 13571 [sym__statementTr];
   STATE 12950 [sym_assignment]; STATE 11871 [sym_varAssignDef]; STATE 12950 [sym_varDef;
   sym_constDef]; STATE 1146 [sym_label]; STATE 7879 [sym__expr; sym_exprConditional];
   STATE 7259 [sym__ref; sym_lambda; sym_inherited; sym_exprDot; sym_exprDeref; sym_exprAs;
   sym_exprTpl; sym_exprSubscript; sym_exprCall]; STATE 7879 [sym_exprBinary; sym_exprUnary];
   STATE 7259 [sym_exprParens; sym_exprBrackets; sym__literal; sym_literalString];
   STATE 6541 [sym__literalString; sym_literalChar]; STATE 7259 [sym_literalNumber];
   STATE 7426 [sym__literalInt; sym__literalFloat]; STATE 6541 [aux_sym_literalString_repeat1];
   ACTIONS 9372 [anon_sym_SEMI]; ACTIONS 673 [anon_sym_LBRACK]; ACTIONS 675 [anon_sym_LPAREN];
   ACTIONS 677 [aux_sym__literalString_token1]; ACTIONS 679 [anon_sym_POUND];
   ACTIONS 681 [aux_sym__literalInt_token1]; ACTIONS 683 [aux_sym__literalInt_token2;
   aux_sym__literalInt_token3]; ACTIONS 681 [aux_sym__literalFloat_token1];
   ACTIONS 685 [sym_kAdd; sym_kSub]; ACTIONS 687 [sym_kAt]; ACTIONS 689 [sym_kTrue; sym_kFalse];
   ACTIONS 9862 [sym_labelNumber]; ACTIONS 3 [sym__space]; ACTIONS 5 [sym_ppDirective];
   ACTIONS 3 [sym_comment]; ACTIONS 689 [sym_ppFragmentExpr];
   ACTIONS 677 [sym__literalStringMultiline]; ACTIONS 9864 [sym_identifier];
   ACTIONS 695 [sym_kSpecialize]; ACTIONS 697 [sym_kAsm]; ACTIONS 699 [sym_kBegin];
   ACTIONS 701 [sym_kCase]; ACTIONS 703 [sym_kConst]; ACTIONS 3286 [sym_kExcept; sym_kFinally];
   ACTIONS 709 [sym_kFor]; ACTIONS 711 [sym_kFunction]; ACTIONS 713 [sym_kGoto];
   ACTIONS 715 [sym_kIf]; ACTIONS 717 [sym_kInherited]; ACTIONS 689 [sym_kNil];
   ACTIONS 687 [sym_kNot]; ACTIONS 711 [sym_kProcedure]; ACTIONS 719 [sym_kRaise];
   ACTIONS 721 [sym_kRepeat]; ACTIONS 723 [sym_kString]; ACTIONS 725 [sym_kTry];
   ACTIONS 727 [sym_kVar]; ACTIONS 729 [sym_kWhile]; ACTIONS 731 [sym_kWith]].

(** State 992. *)
Definition ts_parse_table_992 : parse_row :=
  [STATE 6061 [sym_if]; STATE 6119 [sym_ifElse; sym_while; sym_repeat; sym_for; sym_foreach;
   sym_try; sym_case; sym_block; sym_asm; sym_with; sym_raise; sym_statement; sym_goto;
   sym__statement]; STATE 12646 [sym_ifTr; sym_ifElseTr; sym_whileTr; sym_repeatTr; sym_forTr;
   sym_foreachTr; sym_tryTr; sym_caseTr]; STATE 12758 [sym_blockTr]; STATE 12646 [sym_asmTr;
   sym_withTr; sym_raiseTr; sym_statementTr; sym_gotoTr; sym__statementTr];
   STATE 12174 [sym_assignment]; STATE 11928 [sym_varAssignDef]; STATE 12174 [sym_varDef;
   sym_constDef]; STATE 997 [sym_label]; STATE 7735 [sym__expr; sym_exprConditional];
   STATE 7153 [sym__ref; sym_lambda; sym_inherited; sym_exprDot; sym_exprDeref; sym_exprAs;
   sym_exprTpl; sym_exprSubscript; sym_exprCall]; STATE 7735 [sym_exprBinary; sym_exprUnary];
   STATE 7153 [sym_exprParens; sym_exprBrackets; sym__literal; sym_literalString];
   STATE 6416 [sym__literalString; sym_literalChar]; STATE 7153 [sym_literalNumber];
   STATE 7250 [sym__literalInt; sym__literalFloat]; STATE 997 [aux_sym_labeledStatement_repeat1];
   STATE 6416 [aux_sym_literalString_repeat1]; ACTIONS 9866 [anon_sym_SEMI];
   ACTIONS 7422 [anon_sym_LBRACK]; ACTIONS 7424 [anon_sym_LPAREN];
   ACTIONS 7426 [aux_sym__literalString_token1]; ACTIONS 7428 [anon_sym_POUND];
   ACTIONS 7430 [aux_sym__literalInt_token1]; ACTIONS 7432 [aux_sym__literalInt_token2;
   aux_sym__literalInt_token3]; ACTIONS 7430 [aux_sym__literalFloat_token1];
   ACTIONS 7434 [sym_kAdd; sym_kSub]; ACTIONS 7436 [sym_kAt]; ACTIONS 7438 [sym_kTrue;
   sym_kFalse]; ACTIONS 7440 [sym_labelNumber]; ACTIONS 3 [sym__space];
   ACTIONS 5 [sym_ppDirective]; ACTIONS 3 [sym_comment]; ACTIONS 7438 [sym_ppFragmentExpr];
   ACTIONS 7426 [sym__literalStringMultiline]; ACTIONS 7442 [sym_identifier];
   ACTIONS 7444 [sym_kSpecialize]; ACTIONS 8088 [sym_kAsm]; ACTIONS 8090 [sym_kBegin];
   ACTIONS 8092 [sym_kCase]; ACTIONS 7452 [sym_kConst]; ACTIONS 4301 [sym_kElse; sym_kExcept;
   sym_kFinally]; ACTIONS 8094 [sym_kFor]; ACTIONS 7456 [sym_kFunction];
   ACTIONS 8096 [sym_kGoto]; ACTIONS 9366 [sym_kIf]; ACTIONS 7462 [sym_kInherited];
   ACTIONS 7438 [sym_kNil]; ACTIONS 7436 [sym_kNot]; ACTIONS 7456 [sym_kProcedure];
   ACTIONS 8100 [sym_kRaise]; ACTIONS 8102 [sym_kRepeat]; ACTIONS 7468 [sym_kString];
   ACTIONS 8104 [sym_kTry]; ACTIONS 7472 [sym_kVar]; ACTIONS 8106 [sym_kWhile];
   ACTIONS 8108 [sym_kWith]].

(** State 993. *)
Definition ts_parse_table_993 : parse_row :=
  [STATE 6061 [sym_if]; STATE 6059 [sym_ifElse; sym_while; sym_repeat; sym_for; sym_foreach;
   sym_try; sym_case; sym_block; sym_asm; sym_with; sym_raise; sym_statement; sym_goto;
   sym_labeledStatement; sym__statement]; STATE 13283 [sym_ifTr; sym_ifElseTr; sym_whileTr;
   sym_repeatTr; sym_forTr; sym_foreachTr; sym_tryTr; sym_caseTr]; STATE 13949 [sym_blockTr];
   STATE 13283 [sym_asmTr; sym_withTr; sym_raiseTr; sym_statementTr; sym_gotoTr;
   sym_labeledStatementTr; sym__statementTr]; STATE 12950 [sym_assignment];
   STATE 11871 [sym_varAssignDef]; STATE 12950 [sym_varDef; sym_constDef];
   STATE 1146 [sym_label]; STATE 7879 [sym__expr; sym_exprConditional]; STATE 7259 [sym__ref;
   sym_lambda; sym_inherited; sym_exprDot; sym_exprDeref; sym_exprAs; sym_exprTpl;
   sym_exprSubscript; sym_exprCall]; STATE 7879 [sym_exprBinary; sym_exprUnary];
   STATE 7259 [sym_exprParens; sym_exprBrackets; sym__literal; sym_literalString];
   STATE 6541 [sym__literalString; sym_literalChar]; STATE 7259 [sym_literalNumber];
   STATE 7426 [sym__literalInt; sym__literalFloat]; STATE 6541 [aux_sym_literalString_repeat1];
   ACTIONS 9374 [anon_sym_SEMI]; ACTIONS 673 [anon_sym_LBRACK]; ACTIONS 675 [anon_sym_LPAREN];
   ACTIONS 677 [aux_sym__literalString_token1]; ACTIONS 679 [anon_sym_POUND];
   ACTIONS 681 [aux_sym__literalInt_token1]; ACTIONS 683 [aux_sym__literalInt_token2;
   aux_sym__literalInt_token3]; ACTIONS 681 [aux_sym__literalFloat_token1];
   ACTIONS 685 [sym_kAdd; sym_kSub]; ACTIONS 687 [sym_kAt]; ACTIONS 689 [sym_kTrue; sym_kFalse];
   ACTIONS 9862 [sym_labelNumber]; ACTIONS 3 [sym__space]; ACTIONS 5 [sym_ppDirective];
   ACTIONS 3 [sym_comment]; ACTIONS 689 [sym_ppFragmentExpr];
   ACTIONS 677 [sym__literalStringMultiline]; ACTIONS 9864 [sym_identifier];
   ACTIONS 695 [sym_kSpecialize]; ACTIONS 697 [sym_kAsm]; ACTIONS 699 [sym_kBegin];
   ACTIONS 701 [sym_kCase]; ACTIONS 703 [sym_kConst]; ACTIONS 3290 [sym_kExcept; sym_kFinally];
   ACTIONS 709 [sym_kFor]; ACTIONS 711 [sym_kFunction]; ACTIONS 713 [sym_kGoto];
   ACTIONS 715 [sym_kIf]; ACTIONS 717 [sym_kInherited]; ACTIONS 689 [sym_kNil];
   ACTIONS 687 [sym_kNot]; ACTIONS 711 [sym_kProcedure]; ACTIONS 719 [sym_kRaise];
   ACTIONS 721 [sym_kRepeat]; ACTIONS 723 [sym_kString]; ACTIONS 725 [sym_kTry];
   ACTIONS 727 [sym_kVar]; ACTIONS 729 [sym_kWhile]; ACTIONS 731 [sym_kWith]].

(** State 994. *)
Definition ts_parse_table_994 : parse_row :=
  [STATE 6061 [sym_if]; STATE 6062 [sym_ifElse; sym_while; sym_repeat; sym_for; sym_foreach;
   sym_try; sym_case; sym_block; sym_asm; sym_with; sym_raise; sym_statement; sym_goto;
   sym_labeledStatement; sym__statement]; STATE 13377 [sym_ifTr; sym_ifElseTr; sym_whileTr;
   sym_repeatTr; sym_forTr; sym_foreachTr; sym_tryTr; sym_caseTr]; STATE 13949 [sym_blockTr];
   STATE 13377 [sym_asmTr; sym_withTr; sym_raiseTr; sym_statementTr; sym_gotoTr;
   sym_labeledStatementTr; sym__statementTr]; STATE 12950 [sym_assignment];
   STATE 11871 [sym_varAssignDef]; STATE 12950 [sym_varDef; sym_constDef];
   STATE 1146 [sym_label]; STATE 7879 [sym__expr; sym_exprConditional]; STATE 7259 [sym__ref;
   sym_lambda; sym_inherited; sym_exprDot; sym_exprDeref; sym_exprAs; sym_exprTpl;
   sym_exprSubscript; sym_exprCall]; STATE 7879 [sym_exprBinary; sym_exprUnary];
   STATE 7259 [sym_exprParens; sym_exprBrackets; sym__literal; sym_literalString];
   STATE 6541 [sym__literalString; sym_literalChar]; STATE 7259 [sym_literalNumber];
   STATE 7426 [sym__literalInt; sym__literalFloat]; STATE 6541 [aux_sym_literalString_repeat1];
   ACTIONS 9376 [anon_sym_SEMI]; ACTIONS 673 [anon_sym_LBRACK]; ACTIONS 675 [anon_sym_LPAREN];
   ACTIONS 677 [aux_sym__literalString_token1]; ACTIONS 679 [anon_sym_POUND];
   ACTIONS 681 [aux_sym__literalInt_token1]; ACTIONS 683 [aux_sym__literalInt_token2;
   aux_sym__literalInt_token3]; ACTIONS 681 [aux_sym__literalFloat_token1];
   ACTIONS 685 [sym_kAdd; sym_kSub]; ACTIONS 687 [sym_kAt]; ACTIONS 689 [sym_kTrue; sym_kFalse];
   ACTIONS 9862 [sym_labelNumber]; ACTIONS 3 [sym__space]; ACTIONS 5 [sym_ppDirective];
   ACTIONS 3 [sym_comment]; ACTIONS 689 [sym_ppFragmentExpr];
   ACTIONS 677 [sym__literalStringMultiline]; ACTIONS 9864 [sym_identifier];
   ACTIONS 695 [sym_kSpecialize]; ACTIONS 697 [sym_kAsm]; ACTIONS 699 [sym_kBegin];
   ACTIONS 701 [sym_kCase]; ACTIONS 703 [sym_kConst]; ACTIONS 3296 [sym_kExcept; sym_kFinally];
   ACTIONS 709 [sym_kFor]; ACTIONS 711 [sym_kFunction]; ACTIONS 713 [sym_kGoto];
   ACTIONS 715 [sym_kIf]; ACTIONS 717 [sym_kInherited]; ACTIONS 689 [sym_kNil];
   ACTIONS 687 [sym_kNot]; ACTIONS 711 [sym_kProcedure]; ACTIONS 719 [sym_kRaise];
   ACTIONS 721 [sym_kRepeat]; ACTIONS 723 [sym_kString]; ACTIONS 725 [sym_kTry];
   ACTIONS 727 [sym_kVar]; ACTIONS 729 [sym_kWhile]; ACTIONS 731 [sym_kWith]].

(** State 995. *)
Definition ts_parse_table_995 : parse_row :=
  [STATE 6061 [sym_if]; STATE 6072 [sym_ifElse; sym_while; sym_repeat; sym_for; sym_foreach;
   sym_try; sym_case; sym_block; sym_asm; sym_with; sym_raise; sym_statement; sym_goto;
   sym_labeledStatement; sym__statement]; STATE 13810 [sym_ifTr; sym_ifElseTr; sym_whileTr;
   sym_repeatTr; sym_forTr; sym_foreachTr; sym_tryTr; sym_caseTr]; STATE 13949 [sym_blockTr];
   STATE 13810 [sym_asmTr; sym_withTr; sym_raiseTr; sym_statementTr; sym_gotoTr;
   sym_labeledStatementTr; sym__statementTr]; STATE 12950 [sym_assignment];
   STATE 11871 [sym_varAssignDef]; STATE 12950 [sym_varDef; sym_constDef];
   STATE 1146 [sym_label]; STATE 7879 [sym__expr; sym_exprConditional]; STATE 7259 [sym__ref;
   sym_lambda; sym_inherited; sym_exprDot; sym_exprDeref; sym_exprAs; sym_exprTpl;
   sym_exprSubscript; sym_exprCall]; STATE 7879 [sym_exprBinary; sym_exprUnary];
   STATE 7259 [sym_exprParens; sym_exprBrackets; sym__literal; sym_literalString];
   STATE 6541 [sym__literalString; sym_literalChar]; STATE 7259 [sym_literalNumber];
   STATE 7426 [sym__literalInt; sym__literalFloat]; STATE 6541 [aux_sym_literalString_repeat1];
   ACTIONS 9378 [anon_sym_SEMI]; ACTIONS 673 [anon_sym_LBRACK]; ACTIONS 675 [anon_sym_LPAREN];
   ACTIONS 677 [aux_sym__literalString_token1]; ACTIONS 679 [anon_sym_POUND];
   ACTIONS 681 [aux_sym__literalInt_token1]; ACTIONS 683 [aux_sym__literalInt_token2;
   aux_sym__literalInt_token3]; ACTIONS 681 [aux_sym__literalFloat_token1];
   ACTIONS 685 [sym_kAdd; sym_kSub]; ACTIONS 687 [sym_kAt]; ACTIONS 689 [sym_kTrue; sym_kFalse];
   ACTIONS 9862 [sym_labelNumber]; ACTIONS 3 [sym__space]; ACTIONS 5 [sym_ppDirective];
   ACTIONS 3 [sym_comment]; ACTIONS 689 [sym_ppFragmentExpr];
   ACTIONS 677 [sym__literalStringMultiline]; ACTIONS 9864 [sym_identifier];
   ACTIONS 695 [sym_kSpecialize]; ACTIONS 697 [sym_kAsm]; ACTIONS 699 [sym_kBegin];
   ACTIONS 701 [sym_kCase]; ACTIONS 703 [sym_kConst]; ACTIONS 3304 [sym_kExcept; sym_kFinally];
   ACTIONS 709 [sym_kFor]; ACTIONS 711 [sym_kFunction]; ACTIONS 713 [sym_kGoto];
   ACTIONS 715 [sym_kIf]; ACTIONS 717 [sym_kInherited]; ACTIONS 689 [sym_kNil];
   ACTIONS 687 [sym_kNot]; ACTIONS 711 [sym_kProcedure]; ACTIONS 719 [sym_kRaise];
   ACTIONS 721 [sym_kRepeat]; ACTIONS 723 [sym_kString]; ACTIONS 725 [sym_kTry];
   ACTIONS 727 [sym_kVar]; ACTIONS 729 [sym_kWhile]; ACTIONS 731 [sym_kWith]].

(** State 996. *)
Definition ts_parse_table_996 : parse_row :=
  [ACTIONS 9868 [anon_sym_SEMI; anon_sym_COMMA; anon_sym_LBRACK]; ACTIONS 9870 [anon_sym_LPAREN];
   ACTIONS 9868 [aux_sym__literalString_token1; anon_sym_POUND];
   ACTIONS 9870 [aux_sym__literalInt_token1]; ACTIONS 9868 [aux_sym__literalInt_token2;
   aux_sym__literalInt_token3]; ACTIONS 9870 [aux_sym__literalFloat_token1];
   ACTIONS 9868 [aux_sym_ppUsesBlock_token1; aux_sym_ppUsesBlock_token2;
   aux_sym_ppUsesBlock_token3]; ACTIONS 9870 [sym_kAdd; sym_kSub]; ACTIONS 9868 [sym_kAt;
   sym_kTrue; sym_kFalse]; ACTIONS 3 [sym__space]; ACTIONS 5 [sym_ppDirective];
   ACTIONS 3 [sym_comment]; ACTIONS 9868 [sym_ppFragmentExpr; sym__literalStringMultiline;
   sym_identifier; sym_kDefault; sym_kNodefault; sym_kDispId; sym_kGeneric; sym_kSpecialize;
   sym_kOperator; sym_kPublic; sym_kForward; sym_kStatic; sym_kVirtual; sym_kAbstract;
   sym_kDynamic; sym_kOverride; sym_kOverload; sym_kReintroduce; sym_kStdcall; sym_kCdecl;
   sym_kCppdecl; sym_kPascal; sym_kRegister; sym_kMwpascal; sym_kExternal; sym_kMessage;
   sym_kDeprecated; sym_kExperimental; sym_kPlatform; sym_kUnimplemented; sym_kCvar; sym_kExport;
   sym_kFar; sym_kNear; sym_kSafecall; sym_kAssembler; sym_kNostackframe; sym_kInterrupt;
   sym_kNoreturn; sym_kIocheck; sym_kLocal; sym_kHardfloat; sym_kSoftfloat; sym_kMs_abi_default;
   sym_kMs_abi_cdecl; sym_kSaveregisters; sym_kSysv_abi_default; sym_kSysv_abi_cdecl;
   sym_kVectorcall; sym_kVarargs; sym_kWinapi; sym_kAlias; sym_kAsm; sym_kBegin; sym_kCase;
   sym_kClass; sym_kConst; sym_kConstructor; sym_kDestructor; sym_kExports; sym_kFor;
   sym_kFunction; sym_kGoto; sym_kIf; sym_kInherited; sym_kInline; sym_kLabel; sym_kNil;
   sym_kNot; sym_kProcedure; sym_kProperty; sym_kRaise; sym_kRepeat; sym_kResourcestring;
   sym_kString; sym_kThreadvar; sym_kTry; sym_kType; sym_kUses; sym_kVar; sym_kWhile; sym_kWith]].

(** State 997. *)
Definition ts_parse_table_997 : parse_row :=
  [STATE 6061 [sym_if]; STATE 6133 [sym_ifElse; sym_while; sym_repeat; sym_for; sym_foreach;
   sym_try; sym_case; sym_block; sym_asm; sym_with; sym_raise; sym_statement; sym_goto;
   sym__statement]; STATE 12835 [sym_ifTr; sym_ifElseTr; sym_whileTr; sym_repeatTr; sym_forTr;
   sym_foreachTr; sym_tryTr; sym_caseTr]; STATE 12758 [sym_blockTr]; STATE 12835 [sym_asmTr;
   sym_withTr; sym_raiseTr; sym_statementTr; sym_gotoTr; sym__statementTr];
   STATE 12174 [sym_assignment]; STATE 11928 [sym_varAssignDef]; STATE 12174 [sym_varDef;
   sym_constDef]; STATE 5954 [sym_label]; STATE 7735 [sym__expr; sym_exprConditional];
   STATE 7153 [sym__ref; sym_lambda; sym_inherited; sym_exprDot; sym_exprDeref; sym_exprAs;
   sym_exprTpl; sym_exprSubscript; sym_exprCall]; STATE 7735 [sym_exprBinary; sym_exprUnary];
   STATE 7153 [sym_exprParens; sym_exprBrackets; sym__literal; sym_literalString];
   STATE 6416 [sym__literalString; sym_literalChar]; STATE 7153 [sym_literalNumber];
   STATE 7250 [sym__literalInt; sym__literalFloat];
   STATE 5954 [aux_sym_labeledStatement_repeat1]; STATE 6416 [aux_sym_literalString_repeat1];
   ACTIONS 9872 [anon_sym_SEMI]; ACTIONS 7422 [anon_sym_LBRACK]; ACTIONS 7424 [anon_sym_LPAREN];
   ACTIONS 7426 [aux_sym__literalString_token1]; ACTIONS 7428 [anon_sym_POUND];
   ACTIONS 7430 [aux_sym__literalInt_token1]; ACTIONS 7432 [aux_sym__literalInt_token2;
   aux_sym__literalInt_token3]; ACTIONS 7430 [aux_sym__literalFloat_token1];
   ACTIONS 7434 [sym_kAdd; sym_kSub]; ACTIONS 7436 [sym_kAt]; ACTIONS 7438 [sym_kTrue;
   sym_kFalse]; ACTIONS 7440 [sym_labelNumber]; ACTIONS 3 [sym__space];
   ACTIONS 5 [sym_ppDirective]; ACTIONS 3 [sym_comment]; ACTIONS 7438 [sym_ppFragmentExpr];
   ACTIONS 7426 [sym__literalStringMultiline]; ACTIONS 7442 [sym_identifier];
   ACTIONS 7444 [sym_kSpecialize]; ACTIONS 8088 [sym_kAsm]; ACTIONS 8090 [sym_kBegin];
   ACTIONS 8092 [sym_kCase]; ACTIONS 7452 [sym_kConst]; ACTIONS 4439 [sym_kElse; sym_kExcept;
   sym_kFinally]; ACTIONS 8094 [sym_kFor]; ACTIONS 7456 [sym_kFunction];
   ACTIONS 8096 [sym_kGoto]; ACTIONS 9366 [sym_kIf]; ACTIONS 7462 [sym_kInherited];
   ACTIONS 7438 [sym_kNil]; ACTIONS 7436 [sym_kNot]; ACTIONS 7456 [sym_kProcedure];
   ACTIONS 8100 [sym_kRaise]; ACTIONS 8102 [sym_kRepeat]; ACTIONS 7468 [sym_kString];
   ACTIONS 8104 [sym_kTry]; ACTIONS 7472 [sym_kVar]; ACTIONS 8106 [sym_kWhile];
   ACTIONS 8108 [sym_kWith]].

(** State 998. *)
Definition ts_parse_table_998 : parse_row :=
  [STATE 6273 [sym_if]; STATE 6141 [sym_ifElse; sym_while; sym_repeat; sym_for; sym_foreach;
   sym_try; sym_case; sym_block; sym_asm; sym_with; sym_raise; sym_statement; sym_goto;
   sym_labeledStatement; sym__statement]; STATE 13179 [sym_ifTr; sym_ifElseTr; sym_whileTr;
   sym_repeatTr; sym_forTr; sym_foreachTr; sym_tryTr; sym_caseTr]; STATE 13195 [sym_blockTr];
   STATE 13179 [sym_asmTr; sym_withTr; sym_raiseTr; sym_statementTr; sym_gotoTr;
   sym_labeledStatementTr; sym__statementTr]; STATE 12722 [sym_assignment];
   STATE 11921 [sym_varAssignDef]; STATE 12722 [sym_varDef; sym_constDef];
   STATE 1109 [sym_label]; STATE 7889 [sym__expr; sym_exprConditional]; STATE 7326 [sym__ref;
   sym_lambda; sym_inherited; sym_exprDot; sym_exprDeref; sym_exprAs; sym_exprTpl;
   sym_exprSubscript; sym_exprCall]; STATE 7889 [sym_exprBinary; sym_exprUnary];
   STATE 7326 [sym_exprParens; sym_exprBrackets; sym__literal; sym_literalString];
   STATE 6591 [sym__literalString; sym_literalChar]; STATE 7326 [sym_literalNumber];
   STATE 7474 [sym__literalInt; sym__literalFloat]; STATE 6591 [aux_sym_literalString_repeat1];
   ACTIONS 9874 [anon_sym_SEMI]; ACTIONS 9754 [anon_sym_LBRACK]; ACTIONS 9756 [anon_sym_LPAREN];
   ACTIONS 9758 [aux_sym__literalString_token1]; ACTIONS 9760 [anon_sym_POUND];
   ACTIONS 9762 [aux_sym__literalInt_token1]; ACTIONS 9764 [aux_sym__literalInt_token2;
   aux_sym__literalInt_token3]; ACTIONS 9762 [aux_sym__literalFloat_token1];
   ACTIONS 9766 [sym_kAdd; sym_kSub]; ACTIONS 9768 [sym_kAt]; ACTIONS 9770 [sym_kTrue;
   sym_kFalse]; ACTIONS 9772 [sym_labelNumber]; ACTIONS 3 [sym__space];
   ACTIONS 5 [sym_ppDirective]; ACTIONS 3 [sym_comment]; ACTIONS 9770 [sym_ppFragmentExpr];
   ACTIONS 9758 [sym__literalStringMultiline]; ACTIONS 9774 [sym_identifier];
   ACTIONS 9776 [sym_kSpecialize]; ACTIONS 9876 [sym_kAsm]; ACTIONS 9878 [sym_kBegin];
   ACTIONS 9880 [sym_kCase]; ACTIONS 9784 [sym_kConst]; ACTIONS 3272 [sym_kElse];
   ACTIONS 9882 [sym_kFor]; ACTIONS 9788 [sym_kFunction]; ACTIONS 9884 [sym_kGoto];
   ACTIONS 9886 [sym_kIf]; ACTIONS 9794 [sym_kInherited]; ACTIONS 9770 [sym_kNil];
   ACTIONS 9768 [sym_kNot]; ACTIONS 9788 [sym_kProcedure]; ACTIONS 9888 [sym_kRaise];
   ACTIONS 9890 [sym_kRepeat]; ACTIONS 9800 [sym_kString]; ACTIONS 9892 [sym_kTry];
   ACTIONS 3272 [sym_kUntil]; ACTIONS 9804 [sym_kVar]; ACTIONS 9894 [sym_kWhile];
   ACTIONS 9896 [sym_kWith]].

(** State 999. *)
Definition ts_parse_table_999 : parse_row :=
  [STATE 6273 [sym_if]; STATE 6237 [sym_ifElse; sym_while; sym_repeat; sym_for; sym_foreach;
   sym_try; sym_case; sym_block; sym_asm; sym_with; sym_raise; sym_statement; sym_goto;
   sym_labeledStatement; sym__statement]; STATE 13924 [sym_ifTr; sym_ifElseTr; sym_whileTr;
   sym_repeatTr; sym_forTr; sym_foreachTr; sym_tryTr; sym_caseTr]; STATE 13195 [sym_blockTr];
   STATE 13924 [sym_asmTr; sym_withTr; sym_raiseTr; sym_statementTr; sym_gotoTr;
   sym_labeledStatementTr; sym__statementTr]; STATE 12722 [sym_assignment];
   STATE 11921 [sym_varAssignDef]; STATE 12722 [sym_varDef; sym_constDef];
   STATE 1109 [sym_label]; STATE 7889 [sym__expr; sym_exprConditional]; STATE 7326 [sym__ref;
   sym_lambda; sym_inherited; sym_exprDot; sym_exprDeref; sym_exprAs; sym_exprTpl;
   sym_exprSubscript; sym_exprCall]; STATE 7889 [sym_exprBinary; sym_exprUnary];
   STATE 7326 [sym_exprParens; sym_exprBrackets; sym__literal; sym_literalString];
   STATE 6591 [sym__literalString; sym_literalChar]; STATE 7326 [sym_literalNumber];
   STATE 7474 [sym__literalInt; sym__literalFloat]; STATE 6591 [aux_sym_literalString_repeat1];
   ACTIONS 9898 [anon_sym_SEMI]; ACTIONS 9754 [anon_sym_LBRACK]; ACTIONS 9756 [anon_sym_LPAREN];
   ACTIONS 9758 [aux_sym__literalString_token1]; ACTIONS 9760 [anon_sym_POUND];
   ACTIONS 9762 [aux_sym__literalInt_token1]; ACTIONS 9764 [aux_sym__literalInt_token2;
   aux_sym__literalInt_token3]; ACTIONS 9762 [aux_sym__literalFloat_token1];
   ACTIONS 9766 [sym_kAdd; sym_kSub]; ACTIONS 9768 [sym_kAt]; ACTIONS 9770 [sym_kTrue;
   sym_kFalse]; ACTIONS 9772 [sym_labelNumber]; ACTIONS 3 [sym__space];
   ACTIONS 5 [sym_ppDirective]; ACTIONS 3 [sym_comment]; ACTIONS 9770 [sym_ppFragmentExpr];
   ACTIONS 9758 [sym__literalStringMultiline]; ACTIONS 9774 [sym_identifier];
   ACTIONS 9776 [sym_kSpecialize]; ACTIONS 9876 [sym_kAsm]; ACTIONS 9878 [sym_kBegin];
   ACTIONS 9880 [sym_kCase]; ACTIONS 9784 [sym_kConst]; ACTIONS 3278 [sym_kElse];
   ACTIONS 9882 [sym_kFor]; ACTIONS 9788 [sym_kFunction]; ACTIONS 9884 [sym_kGoto];
   ACTIONS 9886 [sym_kIf]; ACTIONS 9794 [sym_kInherited]; ACTIONS 9770 [sym_kNil];
   ACTIONS 9768 [sym_kNot]; ACTIONS 9788 [sym_kProcedure]; ACTIONS 9888 [sym_kRaise];
   ACTIONS 9890 [sym_kRepeat]; ACTIONS 9800 [sym_kString]; ACTIONS 9892 [sym_kTry];
   ACTIONS 3278 [sym_kUntil]; ACTIONS 9804 [sym_kVar]; ACTIONS 9894 [sym_kWhile];
   ACTIONS 9896 [sym_kWith]].

(** State 1000. *)
Definition ts_parse_table_1000 : parse_row :=
  [STATE 6052 [sym_if]; STATE 6023 [sym_ifElse; sym_while; sym_repeat; sym_for; sym_foreach;
   sym_try; sym_case; sym_block; sym_asm; sym_with; sym_raise; sym_statement; sym_goto;
   sym_labeledStatement; sym__statement]; STATE 13179 [sym_ifTr; sym_ifElseTr; sym_whileTr;
   sym_repeatTr; sym_forTr; sym_foreachTr; sym_tryTr; sym_caseTr]; STATE 13195 [sym_blockTr];
   STATE 13179 [sym_asmTr; sym_withTr; sym_raiseTr; sym_statementTr; sym_gotoTr;
   sym_labeledStatementTr; sym__statementTr]; STATE 12583 [sym_assignment];
   STATE 11921 [sym_varAssignDef]; STATE 12583 [sym_varDef; sym_constDef];
   STATE 1094 [sym_label]; STATE 7850 [sym__expr; sym_exprConditional]; STATE 7326 [sym__ref;
   sym_lambda; sym_inherited; sym_exprDot; sym_exprDeref; sym_exprAs; sym_exprTpl;
   sym_exprSubscript; sym_exprCall]; STATE 7850 [sym_exprBinary; sym_exprUnary];
   STATE 7326 [sym_exprParens; sym_exprBrackets; sym__literal; sym_literalString];
   STATE 6591 [sym__literalString; sym_literalChar]; STATE 7326 [sym_literalNumber];
   STATE 7474 [sym__literalInt; sym__literalFloat]; STATE 6591 [aux_sym_literalString_repeat1];
   ACTIONS 9900 [anon_sym_SEMI]; ACTIONS 9754 [anon_sym_LBRACK]; ACTIONS 9756 [anon_sym_LPAREN];
   ACTIONS 9758 [aux_sym__literalString_token1]; ACTIONS 9760 [anon_sym_POUND];
   ACTIONS 9762 [aux_sym__literalInt_token1]; ACTIONS 9764 [aux_sym__literalInt_token2;
   aux_sym__literalInt_token3]; ACTIONS 9762 [aux_sym__literalFloat_token1];
   ACTIONS 9766 [sym_kAdd; sym_kSub]; ACTIONS 9768 [sym_kAt]; ACTIONS 9770 [sym_kTrue;
   sym_kFalse]; ACTIONS 9772 [sym_labelNumber]; ACTIONS 3 [sym__space];
   ACTIONS 5 [sym_ppDirective]; ACTIONS 3 [sym_comment]; ACTIONS 9770 [sym_ppFragmentExpr];
   ACTIONS 9758 [sym__literalStringMultiline]; ACTIONS 9774 [sym_identifier];
   ACTIONS 9776 [sym_kSpecialize]; ACTIONS 9778 [sym_kAsm]; ACTIONS 9780 [sym_kBegin];
   ACTIONS 9782 [sym_kCase]; ACTIONS 9784 [sym_kConst]; ACTIONS 3272 [sym_kElse];
   ACTIONS 9786 [sym_kFor]; ACTIONS 9788 [sym_kFunction]; ACTIONS 9790 [sym_kGoto];
   ACTIONS 9792 [sym_kIf]; ACTIONS 9794 [sym_kInherited]; ACTIONS 9770 [sym_kNil];
   ACTIONS 9768 [sym_kNot]; ACTIONS 9788 [sym_kProcedure]; ACTIONS 9796 [sym_kRaise];
   ACTIONS 9798 [sym_kRepeat]; ACTIONS 9800 [sym_kString]; ACTIONS 9802 [sym_kTry];
   ACTIONS 3272 [sym_kUntil]; ACTIONS 9804 [sym_kVar]; ACTIONS 9806 [sym_kWhile];
   ACTIONS 9808 [sym_kWith]].

(** State 1001. *)
Definition ts_parse_table_1001 : parse_row :=
  [STATE 6273 [sym_if]; STATE 6324 [sym_ifElse; sym_while; sym_repeat; sym_for; sym_foreach;
   sym_try; sym_case; sym_block; sym_asm; sym_with; sym_raise; sym_statement; sym_goto];
   STATE 6322 [sym_labeledStatement]; STATE 6324 [sym__statement]; STATE 13664 [sym_ifTr;
   sym_ifElseTr; sym_whileTr; sym_repeatTr; sym_forTr; sym_foreachTr; sym_tryTr; sym_caseTr];
   STATE 13195 [sym_blockTr]; STATE 13664 [sym_asmTr; sym_withTr; sym_raiseTr; sym_statementTr;
   sym_gotoTr]; STATE 13661 [sym_labeledStatementTr]; STATE 13664 [sym__statementTr];
   STATE 12722 [sym_assignment]; STATE 11921 [sym_varAssignDef]; STATE 12722 [sym_varDef;
   sym_constDef]; STATE 1109 [sym_label]; STATE 7889 [sym__expr; sym_exprConditional];
   STATE 7326 [sym__ref; sym_lambda; sym_inherited; sym_exprDot; sym_exprDeref; sym_exprAs;
   sym_exprTpl; sym_exprSubscript; sym_exprCall]; STATE 7889 [sym_exprBinary; sym_exprUnary];
   STATE 7326 [sym_exprParens; sym_exprBrackets; sym__literal; sym_literalString];
   STATE 6591 [sym__literalString; sym_literalChar]; STATE 7326 [sym_literalNumber];
   STATE 7474 [sym__literalInt; sym__literalFloat]; STATE 6591 [aux_sym_literalString_repeat1];
   ACTIONS 9902 [anon_sym_SEMI]; ACTIONS 9754 [anon_sym_LBRACK]; ACTIONS 9756 [anon_sym_LPAREN];
   ACTIONS 9758 [aux_sym__literalString_token1]; ACTIONS 9760 [anon_sym_POUND];
   ACTIONS 9762 [aux_sym__literalInt_token1]; ACTIONS 9764 [aux_sym__literalInt_token2;
   aux_sym__literalInt_token3]; ACTIONS 9762 [aux_sym__literalFloat_token1];
   ACTIONS 9766 [sym_kAdd; sym_kSub]; ACTIONS 9768 [sym_kAt]; ACTIONS 9770 [sym_kTrue;
   sym_kFalse]; ACTIONS 9772 [sym_labelNumber]; ACTIONS 3 [sym__space];
   ACTIONS 5 [sym_ppDirective]; ACTIONS 3 [sym_comment]; ACTIONS 9770 [sym_ppFragmentExpr];
   ACTIONS 9758 [sym__literalStringMultiline]; ACTIONS 9774 [sym_identifier];
   ACTIONS 9776 [sym_kSpecialize]; ACTIONS 9876 [sym_kAsm]; ACTIONS 9878 [sym_kBegin];
   ACTIONS 9880 [sym_kCase]; ACTIONS 9784 [sym_kConst]; ACTIONS 3286 [sym_kElse];
   ACTIONS 9882 [sym_kFor]; ACTIONS 9788 [sym_kFunction]; ACTIONS 9884 [sym_kGoto];
   ACTIONS 9886 [sym_kIf]; ACTIONS 9794 [sym_kInherited]; ACTIONS 9770 [sym_kNil];
   ACTIONS 9768 [sym_kNot]; ACTIONS 9788 [sym_kProcedure]; ACTIONS 9888 [sym_kRaise];
   ACTIONS 9890 [sym_kRepeat]; ACTIONS 9800 [sym_kString]; ACTIONS 9892 [sym_kTry];
   ACTIONS 3286 [sym_kUntil]; ACTIONS 9804 [sym_kVar]; ACTIONS 9894 [sym_kWhile];
   ACTIONS 9896 [sym_kWith]].

(** State 1002. *)
Definition ts_parse_table_1002 : parse_row :=
  [STATE 6273 [sym_if]; STATE 6289 [sym_ifElse; sym_while; sym_repeat; sym_for; sym_foreach;
   sym_try; sym_case; sym_block; sym_asm; sym_with; sym_raise; sym_statement; sym_goto;
   sym_labeledStatement; sym__statement]; STATE 14087 [sym_ifTr; sym_ifElseTr; sym_whileTr;
   sym_repeatTr; sym_forTr; sym_foreachTr; sym_tryTr; sym_caseTr]; STATE 13195 [sym_blockTr];
   STATE 14087 [sym_asmTr; sym_withTr; sym_raiseTr; sym_statementTr; sym_gotoTr;
   sym_labeledStatementTr; sym__statementTr]; STATE 12722 [sym_assignment];
   STATE 11921 [sym_varAssignDef]; STATE 12722 [sym_varDef; sym_constDef];
   STATE 1109 [sym_label]; STATE 7889 [sym__expr; sym_exprConditional]; STATE 7326 [sym__ref;
   sym_lambda; sym_inherited; sym_exprDot; sym_exprDeref; sym_exprAs; sym_exprTpl;
   sym_exprSubscript; sym_exprCall]; STATE 7889 [sym_exprBinary; sym_exprUnary];
   STATE 7326 [sym_exprParens; sym_exprBrackets; sym__literal; sym_literalString];
   STATE 6591 [sym__literalString; sym_literalChar]; STATE 7326 [sym_literalNumber];
   STATE 7474 [sym__literalInt; sym__literalFloat]; STATE 6591 [aux_sym_literalString_repeat1];
   ACTIONS 9904 [anon_sym_SEMI]; ACTIONS 9754 [anon_sym_LBRACK]; ACTIONS 9756 [anon_sym_LPAREN];
   ACTIONS 9758 [aux_sym__literalString_token1]; ACTIONS 9760 [anon_sym_POUND];
   ACTIONS 9762 [aux_sym__literalInt_token1]; ACTIONS 9764 [aux_sym__literalInt_token2;
   aux_sym__literalInt_token3]; ACTIONS 9762 [aux_sym__literalFloat_token1];
   ACTIONS 9766 [sym_kAdd; sym_kSub]; ACTIONS 9768 [sym_kAt]; ACTIONS 9770 [sym_kTrue;
   sym_kFalse]; ACTIONS 9772 [sym_labelNumber]; ACTIONS 3 [sym__space];
   ACTIONS 5 [sym_ppDirective]; ACTIONS 3 [sym_comment]; ACTIONS 9770 [sym_ppFragmentExpr];
   ACTIONS 9758 [sym__literalStringMultiline]; ACTIONS 9774 [sym_identifier];
   ACTIONS 9776 [sym_kSpecialize]; ACTIONS 9876 [sym_kAsm]; ACTIONS 9878 [sym_kBegin];
   ACTIONS 9880 [sym_kCase]; ACTIONS 9784 [sym_kConst]; ACTIONS 3290 [sym_kElse];
   ACTIONS 9882 [sym_kFor]; ACTIONS 9788 [sym_kFunction]; ACTIONS 9884 [sym_kGoto];
   ACTIONS 9886 [sym_kIf]; ACTIONS 9794 [sym_kInherited]; ACTIONS 9770 [sym_kNil];
   ACTIONS 9768 [sym_kNot]; ACTIONS 9788 [sym_kProcedure]; ACTIONS 9888 [sym_kRaise];
   ACTIONS 9890 [sym_kRepeat]; ACTIONS 9800 [sym_kString]; ACTIONS 9892 [sym_kTry];
   ACTIONS 3290 [sym_kUntil]; ACTIONS 9804 [sym_kVar]; ACTIONS 9894 [sym_kWhile];
   ACTIONS 9896 [sym_kWith]].

(** State 1003. *)
Definition ts_parse_table_1003 : parse_row :=
  [STATE 6273 [sym_if]; STATE 6291 [sym_ifElse; sym_while; sym_repeat; sym_for; sym_foreach;
   sym_try; sym_case; sym_block; sym_asm; sym_with; sym_raise; sym_statement; sym_goto;
   sym_labeledStatement; sym__statement]; STATE 13001 [sym_ifTr; sym_ifElseTr; sym_whileTr;
   sym_repeatTr; sym_forTr; sym_foreachTr; sym_tryTr; sym_caseTr]; STATE 13195 [sym_blockTr];
   STATE 13001 [sym_asmTr; sym_withTr; sym_raiseTr; sym_statementTr; sym_gotoTr;
   sym_labeledStatementTr; sym__statementTr]; STATE 12722 [sym_assignment];
   STATE 11921 [sym_varAssignDef]; STATE 12722 [sym_varDef; sym_constDef];
   STATE 1109 [sym_label]; STATE 7889 [sym__expr; sym_exprConditional]; STATE 7326 [sym__ref;
   sym_lambda; sym_inherited; sym_exprDot; sym_exprDeref; sym_exprAs; sym_exprTpl;
   sym_exprSubscript; sym_exprCall]; STATE 7889 [sym_exprBinary; sym_exprUnary];
   STATE 7326 [sym_exprParens; sym_exprBrackets; sym__literal; sym_literalString];
   STATE 6591 [sym__literalString; sym_literalChar]; STATE 7326 [sym_literalNumber];
   STATE 7474 [sym__literalInt; sym__literalFloat]; STATE 6591 [aux_sym_literalString_repeat1];
   ACTIONS 9906 [anon_sym_SEMI]; ACTIONS 9754 [anon_sym_LBRACK]; ACTIONS 9756 [anon_sym_LPAREN];
   ACTIONS 9758 [aux_sym__literalString_token1]; ACTIONS 9760 [anon_sym_POUND];
   ACTIONS 9762 [aux_sym__literalInt_token1]; ACTIONS 9764 [aux_sym__literalInt_token2;
   aux_sym__literalInt_token3]; ACTIONS 9762 [aux_sym__literalFloat_token1];
   ACTIONS 9766 [sym_kAdd; sym_kSub]; ACTIONS 9768 [sym_kAt]; ACTIONS 9770 [sym_kTrue;
   sym_kFalse]; ACTIONS 9772 [sym_labelNumber]; ACTIONS 3 [sym__space];
   ACTIONS 5 [sym_ppDirective]; ACTIONS 3 [sym_comment]; ACTIONS 9770 [sym_ppFragmentExpr];
   ACTIONS 9758 [sym__literalStringMultiline]; ACTIONS 9774 [sym_identifier];
   ACTIONS 9776 [sym_kSpecialize]; ACTIONS 9876 [sym_kAsm]; ACTIONS 9878 [sym_kBegin];
   ACTIONS 9880 [sym_kCase]; ACTIONS 9784 [sym_kConst]; ACTIONS 3296 [sym_kElse];
   ACTIONS 9882 [sym_kFor]; ACTIONS 9788 [sym_kFunction]; ACTIONS 9884 [sym_kGoto];
   ACTIONS 9886 [sym_kIf]; ACTIONS 9794 [sym_kInherited]; ACTIONS 9770 [sym_kNil];
   ACTIONS 9768 [sym_kNot]; ACTIONS 9788 [sym_kProcedure]; ACTIONS 9888 [sym_kRaise];
   ACTIONS 9890 [sym_kRepeat]; ACTIONS 9800 [sym_kString]; ACTIONS 9892 [sym_kTry];
   ACTIONS 3296 [sym_kUntil]; ACTIONS 9804 [sym_kVar]; ACTIONS 9894 [sym_kWhile];
   ACTIONS 9896 [sym_kWith]].

(** State 1004. *)
Definition ts_parse_table_1004 : parse_row :=
  [STATE 6273 [sym_if]; STATE 6300 [sym_ifElse; sym_while; sym_repeat; sym_for; sym_foreach;
   sym_try; sym_case; sym_block; sym_asm; sym_with; sym_raise; sym_statement; sym_goto;
   sym_labeledStatement; sym__statement]; STATE 13016 [sym_ifTr; sym_ifElseTr; sym_whileTr;
   sym_repeatTr; sym_forTr; sym_foreachTr; sym_tryTr; sym_caseTr]; STATE 13195 [sym_blockTr];
   STATE 13016 [sym_asmTr; sym_withTr; sym_raiseTr; sym_statementTr; sym_gotoTr;
   sym_labeledStatementTr; sym__statementTr]; STATE 12722 [sym_assignment];
   STATE 11921 [sym_varAssignDef]; STATE 12722 [sym_varDef; sym_constDef];
   STATE 1109 [sym_label]; STATE 7889 [sym__expr; sym_exprConditional]; STATE 7326 [sym__ref;
   sym_lambda; sym_inherited; sym_exprDot; sym_exprDeref; sym_exprAs; sym_exprTpl;
   sym_exprSubscript; sym_exprCall]; STATE 7889 [sym_exprBinary; sym_exprUnary];
   STATE 7326 [sym_exprParens; sym_exprBrackets; sym__literal; sym_literalString];
   STATE 6591 [sym__literalString; sym_literalChar]; STATE 7326 [sym_literalNumber];
   STATE 7474 [sym__literalInt; sym__literalFloat]; STATE 6591 [aux_sym_literalString_repeat1];
   ACTIONS 9908 [anon_sym_SEMI]; ACTIONS 9754 [anon_sym_LBRACK]; ACTIONS 9756 [anon_sym_LPAREN];
   ACTIONS 9758 [aux_sym__literalString_token1]; ACTIONS 9760 [anon_sym_POUND];
   ACTIONS 9762 [aux_sym__literalInt_token1]; ACTIONS 9764 [aux_sym__literalInt_token2;
   aux_sym__literalInt_token3]; ACTIONS 9762 [aux_sym__literalFloat_token1];
   ACTIONS 9766 [sym_kAdd; sym_kSub]; ACTIONS 9768 [sym_kAt]; ACTIONS 9770 [sym_kTrue;
   sym_kFalse]; ACTIONS 9772 [sym_labelNumber]; ACTIONS 3 [sym__space];
   ACTIONS 5 [sym_ppDirective]; ACTIONS 3 [sym_comment]; ACTIONS 9770 [sym_ppFragmentExpr];
   ACTIONS 9758 [sym__literalStringMultiline]; ACTIONS 9774 [sym_identifier];
   ACTIONS 9776 [sym_kSpecialize]; ACTIONS 9876 [sym_kAsm]; ACTIONS 9878 [sym_kBegin];
   ACTIONS 9880 [sym_kCase]; ACTIONS 9784 [sym_kConst]; ACTIONS 3304 [sym_kElse];
   ACTIONS 9882 [sym_kFor]; ACTIONS 9788 [sym_kFunction]; ACTIONS 9884 [sym_kGoto];
   ACTIONS 9886 [sym_kIf]; ACTIONS 9794 [sym_kInherited]; ACTIONS 9770 [sym_kNil];
   ACTIONS 9768 [sym_kNot]; ACTIONS 9788 [sym_kProcedure]; ACTIONS 9888 [sym_kRaise];
   ACTIONS 9890 [sym_kRepeat]; ACTIONS 9800 [sym_kString]; ACTIONS 9892 [sym_kTry];
   ACTIONS 3304 [sym_kUntil]; ACTIONS 9804 [sym_kVar]; ACTIONS 9894 [sym_kWhile];
   ACTIONS 9896 [sym_kWith]].

(** State 1005. *)
Definition ts_parse_table_1005 : parse_row :=
  [ACTIONS 9910 [anon_sym_SEMI; anon_sym_COMMA; anon_sym_LBRACK]; ACTIONS 9912 [anon_sym_LPAREN];
   ACTIONS 9910 [aux_sym__literalString_token1; anon_sym_POUND];
   ACTIONS 9912 [aux_sym__literalInt_token1]; ACTIONS 9910 [aux_sym__literalInt_token2;
   aux_sym__literalInt_token3]; ACTIONS 9912 [aux_sym__literalFloat_token1];
   ACTIONS 9910 [aux_sym_ppUsesBlock_token1; aux_sym_ppUsesBlock_token2;
   aux_sym_ppUsesBlock_token3]; ACTIONS 9912 [sym_kAdd; sym_kSub]; ACTIONS 9910 [sym_kAt;
   sym_kTrue; sym_kFalse]; ACTIONS 3 [sym__space]; ACTIONS 5 [sym_ppDirective];
   ACTIONS 3 [sym_comment]; ACTIONS 9910 [sym_ppFragmentExpr; sym__literalStringMultiline;
   sym_identifier; sym_kDefault; sym_kNodefault; sym_kDispId; sym_kGeneric; sym_kSpecialize;
   sym_kOperator; sym_kPublic; sym_kForward; sym_kStatic; sym_kVirtual; sym_kAbstract;
   sym_kDynamic; sym_kOverride; sym_kOverload; sym_kReintroduce; sym_kStdcall; sym_kCdecl;
   sym_kCppdecl; sym_kPascal; sym_kRegister; sym_kMwpascal; sym_kExternal; sym_kMessage;
   sym_kDeprecated; sym_kExperimental; sym_kPlatform; sym_kUnimplemented; sym_kCvar; sym_kExport;
   sym_kFar; sym_kNear; sym_kSafecall; sym_kAssembler; sym_kNostackframe; sym_kInterrupt;
   sym_kNoreturn; sym_kIocheck; sym_kLocal; sym_kHardfloat; sym_kSoftfloat; sym_kMs_abi_default;
   sym_kMs_abi_cdecl; sym_kSaveregisters; sym_kSysv_abi_default; sym_kSysv_abi_cdecl;
   sym_kVectorcall; sym_kVarargs; sym_kWinapi; sym_kAlias; sym_kAsm; sym_kBegin; sym_kCase;
   sym_kClass; sym_kConst; sym_kConstructor; sym_kDestructor; sym_kExports; sym_kFor;
   sym_kFunction; sym_kGoto; sym_kIf; sym_kInherited; sym_kInline; sym_kLabel; sym_kNil;
   sym_kNot; sym_kProcedure; sym_kProperty; sym_kRaise; sym_kRepeat; sym_kResourcestring;
   sym_kString; sym_kThreadvar; sym_kTry; sym_kType; sym_kUses; sym_kVar; sym_kWhile; sym_kWith]].

(** State 1006. *)
Definition ts_parse_table_1006 : parse_row :=
  [STATE 6128 [sym_if]; STATE 6124 [sym_ifElse; sym_while; sym_repeat; sym_for; sym_foreach;
   sym_try; sym_case; sym_block; sym_asm; sym_with; sym_raise; sym_statement; sym_goto;
   sym_labeledStatement; sym__statement]; STATE 13222 [sym_ifTr; sym_ifElseTr; sym_whileTr;
   sym_repeatTr; sym_forTr; sym_foreachTr; sym_tryTr; sym_caseTr]; STATE 13296 [sym_blockTr];
   STATE 13222 [sym_asmTr; sym_withTr; sym_raiseTr; sym_statementTr; sym_gotoTr;
   sym_labeledStatementTr; sym__statementTr]; STATE 12733 [sym_assignment];
   STATE 11883 [sym_varAssignDef]; STATE 12733 [sym_varDef; sym_constDef];
   STATE 1186 [sym_label]; STATE 7891 [sym__expr; sym_exprConditional]; STATE 7341 [sym__ref;
   sym_lambda; sym_inherited; sym_exprDot; sym_exprDeref; sym_exprAs; sym_exprTpl;
   sym_exprSubscript; sym_exprCall]; STATE 7891 [sym_exprBinary; sym_exprUnary];
   STATE 7341 [sym_exprParens; sym_exprBrackets; sym__literal; sym_literalString];
   STATE 6534 [sym__literalString; sym_literalChar]; STATE 7341 [sym_literalNumber];
   STATE 7552 [sym__literalInt; sym__literalFloat]; STATE 6534 [aux_sym_literalString_repeat1];
   ACTIONS 9748 [anon_sym_SEMI]; ACTIONS 9634 [anon_sym_LBRACK]; ACTIONS 9636 [anon_sym_LPAREN];
   ACTIONS 9638 [aux_sym__literalString_token1]; ACTIONS 9640 [anon_sym_POUND];
   ACTIONS 9642 [aux_sym__literalInt_token1]; ACTIONS 9644 [aux_sym__literalInt_token2;
   aux_sym__literalInt_token3]; ACTIONS 9642 [aux_sym__literalFloat_token1];
   ACTIONS 9646 [sym_kAdd; sym_kSub]; ACTIONS 9648 [sym_kAt]; ACTIONS 9650 [sym_kTrue;
   sym_kFalse]; ACTIONS 9652 [sym_labelNumber]; ACTIONS 3 [sym__space];
   ACTIONS 5 [sym_ppDirective]; ACTIONS 3 [sym_comment]; ACTIONS 9650 [sym_ppFragmentExpr];
   ACTIONS 9638 [sym__literalStringMultiline]; ACTIONS 9654 [sym_identifier];
   ACTIONS 9656 [sym_kSpecialize]; ACTIONS 9658 [sym_kAsm]; ACTIONS 9660 [sym_kBegin];
   ACTIONS 9662 [sym_kCase]; ACTIONS 9664 [sym_kConst]; ACTIONS 9744 [sym_kElse];
   ACTIONS 3230 [sym_kEnd]; ACTIONS 9666 [sym_kFor]; ACTIONS 9668 [sym_kFunction];
   ACTIONS 9670 [sym_kGoto]; ACTIONS 9672 [sym_kIf]; ACTIONS 9674 [sym_kInherited];
   ACTIONS 9650 [sym_kNil]; ACTIONS 9648 [sym_kNot]; ACTIONS 9668 [sym_kProcedure];
   ACTIONS 9676 [sym_kRaise]; ACTIONS 9678 [sym_kRepeat]; ACTIONS 9680 [sym_kString];
   ACTIONS 9682 [sym_kTry]; ACTIONS 9684 [sym_kVar]; ACTIONS 9686 [sym_kWhile];
   ACTIONS 9688 [sym_kWith]].

(** State 1007. *)
Definition ts_parse_table_1007 : parse_row :=
  [STATE 6213 [sym_if]; STATE 6217 [sym_ifElse; sym_while; sym_repeat; sym_for; sym_foreach;
   sym_try; sym_case; sym_block; sym_asm; sym_with; sym_raise; sym_statement; sym_goto;
   sym_labeledStatement; sym__statement]; STATE 13240 [sym_ifTr; sym_ifElseTr; sym_whileTr;
   sym_repeatTr; sym_forTr; sym_foreachTr; sym_tryTr; sym_caseTr]; STATE 13296 [sym_blockTr];
   STATE 13240 [sym_asmTr; sym_withTr; sym_raiseTr; sym_statementTr; sym_gotoTr;
   sym_labeledStatementTr; sym__statementTr]; STATE 12751 [sym_assignment];
   STATE 11883 [sym_varAssignDef]; STATE 12751 [sym_varDef; sym_constDef];
   STATE 1133 [sym_label]; STATE 7864 [sym__expr; sym_exprConditional]; STATE 7341 [sym__ref;
   sym_lambda; sym_inherited; sym_exprDot; sym_exprDeref; sym_exprAs; sym_exprTpl;
   sym_exprSubscript; sym_exprCall]; STATE 7864 [sym_exprBinary; sym_exprUnary];
   STATE 7341 [sym_exprParens; sym_exprBrackets; sym__literal; sym_literalString];
   STATE 6534 [sym__literalString; sym_literalChar]; STATE 7341 [sym_literalNumber];
   STATE 7552 [sym__literalInt; sym__literalFloat]; STATE 6534 [aux_sym_literalString_repeat1];
   ACTIONS 9914 [anon_sym_SEMI]; ACTIONS 9634 [anon_sym_LBRACK]; ACTIONS 9636 [anon_sym_LPAREN];
   ACTIONS 9638 [aux_sym__literalString_token1]; ACTIONS 9640 [anon_sym_POUND];
   ACTIONS 9642 [aux_sym__literalInt_token1]; ACTIONS 9644 [aux_sym__literalInt_token2;
   aux_sym__literalInt_token3]; ACTIONS 9642 [aux_sym__literalFloat_token1];
   ACTIONS 9646 [sym_kAdd; sym_kSub]; ACTIONS 9648 [sym_kAt]; ACTIONS 9650 [sym_kTrue;
   sym_kFalse]; ACTIONS 9652 [sym_labelNumber]; ACTIONS 3 [sym__space];
   ACTIONS 5 [sym_ppDirective]; ACTIONS 3 [sym_comment]; ACTIONS 9650 [sym_ppFragmentExpr];
   ACTIONS 9638 [sym__literalStringMultiline]; ACTIONS 9654 [sym_identifier];
   ACTIONS 9656 [sym_kSpecialize]; ACTIONS 9692 [sym_kAsm]; ACTIONS 9694 [sym_kBegin];
   ACTIONS 9696 [sym_kCase]; ACTIONS 9664 [sym_kConst]; ACTIONS 3272 [sym_kElse; sym_kEnd];
   ACTIONS 9698 [sym_kFor]; ACTIONS 9668 [sym_kFunction]; ACTIONS 9700 [sym_kGoto];
   ACTIONS 9702 [sym_kIf]; ACTIONS 9674 [sym_kInherited]; ACTIONS 9650 [sym_kNil];
   ACTIONS 9648 [sym_kNot]; ACTIONS 9668 [sym_kProcedure]; ACTIONS 9704 [sym_kRaise];
   ACTIONS 9706 [sym_kRepeat]; ACTIONS 9680 [sym_kString]; ACTIONS 9708 [sym_kTry];
   ACTIONS 9684 [sym_kVar]; ACTIONS 9710 [sym_kWhile]; ACTIONS 9712 [sym_kWith]].

(** State 1008. *)
Definition ts_parse_table_1008 : parse_row :=
  [STATE 6213 [sym_if]; STATE 6218 [sym_ifElse; sym_while; sym_repeat; sym_for; sym_foreach;
   sym_try; sym_case; sym_block; sym_asm; sym_with; sym_raise; sym_statement; sym_goto;
   sym_labeledStatement; sym__statement]; STATE 13252 [sym_ifTr; sym_ifElseTr; sym_whileTr;
   sym_repeatTr; sym_forTr; sym_foreachTr; sym_tryTr; sym_caseTr]; STATE 13296 [sym_blockTr];
   STATE 13252 [sym_asmTr; sym_withTr; sym_raiseTr; sym_statementTr; sym_gotoTr;
   sym_labeledStatementTr; sym__statementTr]; STATE 12751 [sym_assignment];
   STATE 11883 [sym_varAssignDef]; STATE 12751 [sym_varDef; sym_constDef];
   STATE 1133 [sym_label]; STATE 7864 [sym__expr; sym_exprConditional]; STATE 7341 [sym__ref;
   sym_lambda; sym_inherited; sym_exprDot; sym_exprDeref; sym_exprAs; sym_exprTpl;
   sym_exprSubscript; sym_exprCall]; STATE 7864 [sym_exprBinary; sym_exprUnary];
   STATE 7341 [sym_exprParens; sym_exprBrackets; sym__literal; sym_literalString];
   STATE 6534 [sym__literalString; sym_literalChar]; STATE 7341 [sym_literalNumber];
   STATE 7552 [sym__literalInt; sym__literalFloat]; STATE 6534 [aux_sym_literalString_repeat1];
   ACTIONS 9916 [anon_sym_SEMI]; ACTIONS 9634 [anon_sym_LBRACK]; ACTIONS 9636 [anon_sym_LPAREN];
   ACTIONS 9638 [aux_sym__literalString_token1]; ACTIONS 9640 [anon_sym_POUND];
   ACTIONS 9642 [aux_sym__literalInt_token1]; ACTIONS 9644 [aux_sym__literalInt_token2;
   aux_sym__literalInt_token3]; ACTIONS 9642 [aux_sym__literalFloat_token1];
   ACTIONS 9646 [sym_kAdd; sym_kSub]; ACTIONS 9648 [sym_kAt]; ACTIONS 9650 [sym_kTrue;
   sym_kFalse]; ACTIONS 9652 [sym_labelNumber]; ACTIONS 3 [sym__space];
   ACTIONS 5 [sym_ppDirective]; ACTIONS 3 [sym_comment]; ACTIONS 9650 [sym_ppFragmentExpr];
   ACTIONS 9638 [sym__literalStringMultiline]; ACTIONS 9654 [sym_identifier];
   ACTIONS 9656 [sym_kSpecialize]; ACTIONS 9692 [sym_kAsm]; ACTIONS 9694 [sym_kBegin];
   ACTIONS 9696 [sym_kCase]; ACTIONS 9664 [sym_kConst]; ACTIONS 3278 [sym_kElse; sym_kEnd];
   ACTIONS 9698 [sym_kFor]; ACTIONS 9668 [sym_kFunction]; ACTIONS 9700 [sym_kGoto];
   ACTIONS 9702 [sym_kIf]; ACTIONS 9674 [sym_kInherited]; ACTIONS 9650 [sym_kNil];
   ACTIONS 9648 [sym_kNot]; ACTIONS 9668 [sym_kProcedure]; ACTIONS 9704 [sym_kRaise];
   ACTIONS 9706 [sym_kRepeat]; ACTIONS 9680 [sym_kString]; ACTIONS 9708 [sym_kTry];
   ACTIONS 9684 [sym_kVar]; ACTIONS 9710 [sym_kWhile]; ACTIONS 9712 [sym_kWith]].

(** State 1009. *)
Definition ts_parse_table_1009 : parse_row :=
  [STATE 895 [sym_procExternal]; ACTIONS 9918 [anon_sym_SEMI; anon_sym_COMMA; anon_sym_LBRACK];
   ACTIONS 9920 [anon_sym_LPAREN]; ACTIONS 9918 [aux_sym__literalString_token1; anon_sym_POUND];
   ACTIONS 9920 [aux_sym__literalInt_token1]; ACTIONS 9918 [aux_sym__literalInt_token2;
   aux_sym__literalInt_token3]; ACTIONS 9920 [aux_sym__literalFloat_token1];
   ACTIONS 9918 [aux_sym_ppUsesBlock_token1; aux_sym_ppUsesBlock_token2;
   aux_sym_ppUsesBlock_token3]; ACTIONS 9920 [sym_kAdd; sym_kSub]; ACTIONS 9918 [sym_kAt;
   sym_kTrue; sym_kFalse]; ACTIONS 3 [sym__space]; ACTIONS 5 [sym_ppDirective];
   ACTIONS 3 [sym_comment]; ACTIONS 9918 [sym_ppFragmentExpr; sym__literalStringMultiline;
   sym_identifier; sym_kDefault; sym_kNodefault; sym_kDispId; sym_kGeneric; sym_kSpecialize;
   sym_kOperator; sym_kPublic]; ACTIONS 9922 [sym_kForward]; ACTIONS 9918 [sym_kStatic;
   sym_kVirtual; sym_kAbstract; sym_kDynamic; sym_kOverride; sym_kOverload; sym_kReintroduce;
   sym_kStdcall; sym_kCdecl; sym_kCppdecl; sym_kPascal; sym_kRegister; sym_kMwpascal];
   ACTIONS 9924 [sym_kExternal]; ACTIONS 9918 [sym_kMessage; sym_kDeprecated; sym_kExperimental;
   sym_kPlatform; sym_kUnimplemented; sym_kCvar; sym_kExport; sym_kFar; sym_kNear; sym_kSafecall;
   sym_kAssembler; sym_kNostackframe; sym_kInterrupt; sym_kNoreturn; sym_kIocheck; sym_kLocal;
   sym_kHardfloat; sym_kSoftfloat; sym_kMs_abi_default; sym_kMs_abi_cdecl; sym_kSaveregisters;
   sym_kSysv_abi_default; sym_kSysv_abi_cdecl; sym_kVectorcall; sym_kVarargs; sym_kWinapi;
   sym_kAlias; sym_kAsm; sym_kBegin; sym_kCase; sym_kClass; sym_kConst; sym_kConstructor;
   sym_kDestructor; sym_kExports; sym_kFor; sym_kFunction; sym_kGoto; sym_kIf; sym_kInherited;
   sym_kLabel; sym_kNil; sym_kNot; sym_kProcedure; sym_kProperty; sym_kRaise; sym_kRepeat;
   sym_kResourcestring; sym_kString; sym_kThreadvar; sym_kTry; sym_kType; sym_kUses; sym_kVar;
   sym_kWhile; sym_kWith]].

(** State 1010. *)
Definition ts_parse_table_1010 : parse_row :=
  [STATE 5885 [sym_if]; STATE 5902 [sym_ifElse; sym_while; sym_repeat; sym_for; sym_foreach;
   sym_try; sym_case; sym_block; sym_asm; sym_with; sym_raise; sym_statement; sym_goto;
   sym__statement]; STATE 12646 [sym_ifTr; sym_ifElseTr; sym_whileTr; sym_repeatTr; sym_forTr;
   sym_foreachTr; sym_tryTr; sym_caseTr]; STATE 12758 [sym_blockTr]; STATE 12646 [sym_asmTr;
   sym_withTr; sym_raiseTr; sym_statementTr; sym_gotoTr; sym__statementTr];
   STATE 12111 [sym_assignment]; STATE 11928 [sym_varAssignDef]; STATE 12111 [sym_varDef;
   sym_constDef]; STATE 974 [sym_label]; STATE 7752 [sym__expr; sym_exprConditional];
   STATE 7153 [sym__ref; sym_lambda; sym_inherited; sym_exprDot; sym_exprDeref; sym_exprAs;
   sym_exprTpl; sym_exprSubscript; sym_exprCall]; STATE 7752 [sym_exprBinary; sym_exprUnary];
   STATE 7153 [sym_exprParens; sym_exprBrackets; sym__literal; sym_literalString];
   STATE 6416 [sym__literalString; sym_literalChar]; STATE 7153 [sym_literalNumber];
   STATE 7250 [sym__literalInt; sym__literalFloat]; STATE 974 [aux_sym_labeledStatement_repeat1];
   STATE 6416 [aux_sym_literalString_repeat1]; ACTIONS 9926 [anon_sym_SEMI];
   ACTIONS 7422 [anon_sym_LBRACK]; ACTIONS 7424 [anon_sym_LPAREN];
   ACTIONS 7426 [aux_sym__literalString_token1]; ACTIONS 7428 [anon_sym_POUND];
   ACTIONS 7430 [aux_sym__literalInt_token1]; ACTIONS 7432 [aux_sym__literalInt_token2;
   aux_sym__literalInt_token3]; ACTIONS 7430 [aux_sym__literalFloat_token1];
   ACTIONS 7434 [sym_kAdd; sym_kSub]; ACTIONS 7436 [sym_kAt]; ACTIONS 7438 [sym_kTrue;
   sym_kFalse]; ACTIONS 7440 [sym_labelNumber]; ACTIONS 3 [sym__space];
   ACTIONS 5 [sym_ppDirective]; ACTIONS 3 [sym_comment]; ACTIONS 7438 [sym_ppFragmentExpr];
   ACTIONS 7426 [sym__literalStringMultiline]; ACTIONS 7442 [sym_identifier];
   ACTIONS 7444 [sym_kSpecialize]; ACTIONS 7446 [sym_kAsm]; ACTIONS 7448 [sym_kBegin];
   ACTIONS 7450 [sym_kCase]; ACTIONS 7452 [sym_kConst]; ACTIONS 4301 [sym_kElse; sym_kExcept;
   sym_kFinally]; ACTIONS 7454 [sym_kFor]; ACTIONS 7456 [sym_kFunction];
   ACTIONS 7458 [sym_kGoto]; ACTIONS 7460 [sym_kIf]; ACTIONS 7462 [sym_kInherited];
   ACTIONS 7438 [sym_kNil]; ACTIONS 7436 [sym_kNot]; ACTIONS 7456 [sym_kProcedure];
   ACTIONS 7464 [sym_kRaise]; ACTIONS 7466 [sym_kRepeat]; ACTIONS 7468 [sym_kString];
   ACTIONS 7470 [sym_kTry]; ACTIONS 7472 [sym_kVar]; ACTIONS 7474 [sym_kWhile];
   ACTIONS 7476 [sym_kWith]].

(** State 1011. *)
Definition ts_parse_table_1011 : parse_row :=
  [STATE 6052 [sym_if]; STATE 6041 [sym_ifElse; sym_while; sym_repeat; sym_for; sym_foreach;
   sym_try; sym_case; sym_block; sym_asm; sym_with; sym_raise; sym_statement; sym_goto;
   sym_labeledStatement; sym__statement]; STATE 14087 [sym_ifTr; sym_ifElseTr; sym_whileTr;
   sym_repeatTr; sym_forTr; sym_foreachTr; sym_tryTr; sym_caseTr]; STATE 13195 [sym_blockTr];
   STATE 14087 [sym_asmTr; sym_withTr; sym_raiseTr; sym_statementTr; sym_gotoTr;
   sym_labeledStatementTr; sym__statementTr]; STATE 12583 [sym_assignment];
   STATE 11921 [sym_varAssignDef]; STATE 12583 [sym_varDef; sym_constDef];
   STATE 1094 [sym_label]; STATE 7850 [sym__expr; sym_exprConditional]; STATE 7326 [sym__ref;
   sym_lambda; sym_inherited; sym_exprDot; sym_exprDeref; sym_exprAs; sym_exprTpl;
   sym_exprSubscript; sym_exprCall]; STATE 7850 [sym_exprBinary; sym_exprUnary];
   STATE 7326 [sym_exprParens; sym_exprBrackets; sym__literal; sym_literalString];
   STATE 6591 [sym__literalString; sym_literalChar]; STATE 7326 [sym_literalNumber];
   STATE 7474 [sym__literalInt; sym__literalFloat]; STATE 6591 [aux_sym_literalString_repeat1];
   ACTIONS 9928 [anon_sym_SEMI]; ACTIONS 9754 [anon_sym_LBRACK]; ACTIONS 9756 [anon_sym_LPAREN];
   ACTIONS 9758 [aux_sym__literalString_token1]; ACTIONS 9760 [anon_sym_POUND];
   ACTIONS 9762 [aux_sym__literalInt_token1]; ACTIONS 9764 [aux_sym__literalInt_token2;
   aux_sym__literalInt_token3]; ACTIONS 9762 [aux_sym__literalFloat_token1];
   ACTIONS 9766 [sym_kAdd; sym_kSub]; ACTIONS 9768 [sym_kAt]; ACTIONS 9770 [sym_kTrue;
   sym_kFalse]; ACTIONS 9772 [sym_labelNumber]; ACTIONS 3 [sym__space];
   ACTIONS 5 [sym_ppDirective]; ACTIONS 3 [sym_comment]; ACTIONS 9770 [sym_ppFragmentExpr];
   ACTIONS 9758 [sym__literalStringMultiline]; ACTIONS 9774 [sym_identifier];
   ACTIONS 9776 [sym_kSpecialize]; ACTIONS 9778 [sym_kAsm]; ACTIONS 9780 [sym_kBegin];
   ACTIONS 9782 [sym_kCase]; ACTIONS 9784 [sym_kConst]; ACTIONS 3290 [sym_kElse];
   ACTIONS 9786 [sym_kFor]; ACTIONS 9788 [sym_kFunction]; ACTIONS 9790 [sym_kGoto];
   ACTIONS 9792 [sym_kIf]; ACTIONS 9794 [sym_kInherited]; ACTIONS 9770 [sym_kNil];
   ACTIONS 9768 [sym_kNot]; ACTIONS 9788 [sym_kProcedure]; ACTIONS 9796 [sym_kRaise];
   ACTIONS 9798 [sym_kRepeat]; ACTIONS 9800 [sym_kString]; ACTIONS 9802 [sym_kTry];
   ACTIONS 3290 [sym_kUntil]; ACTIONS 9804 [sym_kVar]; ACTIONS 9806 [sym_kWhile];
   ACTIONS 9808 [sym_kWith]].

(** State 1012. *)
Definition ts_parse_table_1012 : parse_row :=
  [STATE 6047 [sym_if]; STATE 6155 [sym_ifElse; sym_while; sym_repeat; sym_for; sym_foreach;
   sym_try; sym_case; sym_block; sym_asm; sym_with; sym_raise; sym_statement; sym_goto;
   sym_labeledStatement; sym__statement]; STATE 13622 [sym_ifTr; sym_ifElseTr; sym_whileTr;
   sym_repeatTr; sym_forTr; sym_foreachTr; sym_tryTr; sym_caseTr]; STATE 13296 [sym_blockTr];
   STATE 13622 [sym_asmTr; sym_withTr; sym_raiseTr; sym_statementTr; sym_gotoTr;
   sym_labeledStatementTr; sym__statementTr]; STATE 12751 [sym_assignment];
   STATE 11883 [sym_varAssignDef]; STATE 12751 [sym_varDef; sym_constDef];
   STATE 1133 [sym_label]; STATE 7916 [sym__expr; sym_exprConditional]; STATE 7341 [sym__ref;
   sym_lambda; sym_inherited; sym_exprDot; sym_exprDeref; sym_exprAs; sym_exprTpl;
   sym_exprSubscript; sym_exprCall]; STATE 7916 [sym_exprBinary; sym_exprUnary];
   STATE 7341 [sym_exprParens; sym_exprBrackets; sym__literal; sym_literalString];
   STATE 6534 [sym__literalString; sym_literalChar]; STATE 7341 [sym_literalNumber];
   STATE 7552 [sym__literalInt; sym__literalFloat]; STATE 6534 [aux_sym_literalString_repeat1];
   ACTIONS 9742 [anon_sym_SEMI]; ACTIONS 9634 [anon_sym_LBRACK]; ACTIONS 9636 [anon_sym_LPAREN];
   ACTIONS 9638 [aux_sym__literalString_token1]; ACTIONS 9640 [anon_sym_POUND];
   ACTIONS 9642 [aux_sym__literalInt_token1]; ACTIONS 9644 [aux_sym__literalInt_token2;
   aux_sym__literalInt_token3]; ACTIONS 9642 [aux_sym__literalFloat_token1];
   ACTIONS 9646 [sym_kAdd; sym_kSub]; ACTIONS 9648 [sym_kAt]; ACTIONS 9650 [sym_kTrue;
   sym_kFalse]; ACTIONS 9652 [sym_labelNumber]; ACTIONS 3 [sym__space];
   ACTIONS 5 [sym_ppDirective]; ACTIONS 3 [sym_comment]; ACTIONS 9650 [sym_ppFragmentExpr];
   ACTIONS 9638 [sym__literalStringMultiline]; ACTIONS 9654 [sym_identifier];
   ACTIONS 9656 [sym_kSpecialize]; ACTIONS 9692 [sym_kAsm]; ACTIONS 9694 [sym_kBegin];
   ACTIONS 9696 [sym_kCase]; ACTIONS 9664 [sym_kConst]; ACTIONS 9930 [sym_kElse];
   ACTIONS 3230 [sym_kEnd]; ACTIONS 9698 [sym_kFor]; ACTIONS 9668 [sym_kFunction];
   ACTIONS 9700 [sym_kGoto]; ACTIONS 9746 [sym_kIf]; ACTIONS 9674 [sym_kInherited];
   ACTIONS 9650 [sym_kNil]; ACTIONS 9648 [sym_kNot]; ACTIONS 9668 [sym_kProcedure];
   ACTIONS 9704 [sym_kRaise]; ACTIONS 9706 [sym_kRepeat]; ACTIONS 9680 [sym_kString];
   ACTIONS 9708 [sym_kTry]; ACTIONS 9684 [sym_kVar]; ACTIONS 9710 [sym_kWhile];
   ACTIONS 9712 [sym_kWith]].

(** State 1013. *)
Definition ts_parse_table_1013 : parse_row :=
  [STATE 12669 [sym_if]; STATE 12494 [sym_ifElse; sym_while; sym_repeat; sym_for; sym_foreach;
   sym_try; sym_case; sym_block; sym_asm; sym_with; sym_raise; sym_statement; sym_goto;
   sym_labeledStatement; sym__statement]; STATE 13240 [sym_ifTr; sym_ifElseTr; sym_whileTr;
   sym_repeatTr; sym_forTr; sym_foreachTr; sym_tryTr; sym_caseTr]; STATE 13296 [sym_blockTr];
   STATE 13240 [sym_asmTr; sym_withTr; sym_raiseTr; sym_statementTr; sym_gotoTr;
   sym_labeledStatementTr; sym__statementTr]; STATE 12775 [sym_assignment];
   STATE 11883 [sym_varAssignDef]; STATE 12775 [sym_varDef; sym_constDef];
   STATE 1170 [sym_label]; STATE 7815 [sym__expr; sym_exprConditional]; STATE 7341 [sym__ref;
   sym_lambda; sym_inherited; sym_exprDot; sym_exprDeref; sym_exprAs; sym_exprTpl;
   sym_exprSubscript; sym_exprCall]; STATE 7815 [sym_exprBinary; sym_exprUnary];
   STATE 7341 [sym_exprParens; sym_exprBrackets; sym__literal; sym_literalString];
   STATE 6534 [sym__literalString; sym_literalChar]; STATE 7341 [sym_literalNumber];
   STATE 7552 [sym__literalInt; sym__literalFloat]; STATE 6534 [aux_sym_literalString_repeat1];
   ACTIONS 9932 [anon_sym_SEMI]; ACTIONS 9634 [anon_sym_LBRACK]; ACTIONS 9636 [anon_sym_LPAREN];
   ACTIONS 9638 [aux_sym__literalString_token1]; ACTIONS 9640 [anon_sym_POUND];
   ACTIONS 9642 [aux_sym__literalInt_token1]; ACTIONS 9644 [aux_sym__literalInt_token2;
   aux_sym__literalInt_token3]; ACTIONS 9642 [aux_sym__literalFloat_token1];
   ACTIONS 9646 [sym_kAdd; sym_kSub]; ACTIONS 9648 [sym_kAt]; ACTIONS 9650 [sym_kTrue;
   sym_kFalse]; ACTIONS 9652 [sym_labelNumber]; ACTIONS 3 [sym__space];
   ACTIONS 5 [sym_ppDirective]; ACTIONS 3 [sym_comment]; ACTIONS 9650 [sym_ppFragmentExpr];
   ACTIONS 9638 [sym__literalStringMultiline]; ACTIONS 9654 [sym_identifier];
   ACTIONS 9656 [sym_kSpecialize]; ACTIONS 9718 [sym_kAsm]; ACTIONS 9720 [sym_kBegin];
   ACTIONS 9722 [sym_kCase]; ACTIONS 9664 [sym_kConst]; ACTIONS 3272 [sym_kElse; sym_kEnd];
   ACTIONS 9726 [sym_kFor]; ACTIONS 9668 [sym_kFunction]; ACTIONS 9728 [sym_kGoto];
   ACTIONS 9730 [sym_kIf]; ACTIONS 9674 [sym_kInherited]; ACTIONS 9650 [sym_kNil];
   ACTIONS 9648 [sym_kNot]; ACTIONS 9668 [sym_kProcedure]; ACTIONS 9732 [sym_kRaise];
   ACTIONS 9734 [sym_kRepeat]; ACTIONS 9680 [sym_kString]; ACTIONS 9736 [sym_kTry];
   ACTIONS 9684 [sym_kVar]; ACTIONS 9738 [sym_kWhile]; ACTIONS 9740 [sym_kWith]].

(** State 1014. *)
Definition ts_parse_table_1014 : parse_row :=
  [STATE 12669 [sym_if]; STATE 12500 [sym_ifElse; sym_while; sym_repeat; sym_for; sym_foreach;
   sym_try; sym_case; sym_block; sym_asm; sym_with; sym_raise; sym_statement; sym_goto;
   sym_labeledStatement; sym__statement]; STATE 13252 [sym_ifTr; sym_ifElseTr; sym_whileTr;
   sym_repeatTr; sym_forTr; sym_foreachTr; sym_tryTr; sym_caseTr]; STATE 13296 [sym_blockTr];
   STATE 13252 [sym_asmTr; sym_withTr; sym_raiseTr; sym_statementTr; sym_gotoTr;
   sym_labeledStatementTr; sym__statementTr]; STATE 12775 [sym_assignment];
   STATE 11883 [sym_varAssignDef]; STATE 12775 [sym_varDef; sym_constDef];
   STATE 1170 [sym_label]; STATE 7815 [sym__expr; sym_exprConditional]; STATE 7341 [sym__ref;
   sym_lambda; sym_inherited; sym_exprDot; sym_exprDeref; sym_exprAs; sym_exprTpl;
   sym_exprSubscript; sym_exprCall]; STATE 7815 [sym_exprBinary; sym_exprUnary];
   STATE 7341 [sym_exprParens; sym_exprBrackets; sym__literal; sym_literalString];
   STATE 6534 [sym__literalString; sym_literalChar]; STATE 7341 [sym_literalNumber];
   STATE 7552 [sym__literalInt; sym__literalFloat]; STATE 6534 [aux_sym_literalString_repeat1];
   ACTIONS 9934 [anon_sym_SEMI]; ACTIONS 9634 [anon_sym_LBRACK]; ACTIONS 9636 [anon_sym_LPAREN];
   ACTIONS 9638 [aux_sym__literalString_token1]; ACTIONS 9640 [anon_sym_POUND];
   ACTIONS 9642 [aux_sym__literalInt_token1]; ACTIONS 9644 [aux_sym__literalInt_token2;
   aux_sym__literalInt_token3]; ACTIONS 9642 [aux_sym__literalFloat_token1];
   ACTIONS 9646 [sym_kAdd; sym_kSub]; ACTIONS 9648 [sym_kAt]; ACTIONS 9650 [sym_kTrue;
   sym_kFalse]; ACTIONS 9652 [sym_labelNumber]; ACTIONS 3 [sym__space];
   ACTIONS 5 [sym_ppDirective]; ACTIONS 3 [sym_comment]; ACTIONS 9650 [sym_ppFragmentExpr];
   ACTIONS 9638 [sym__literalStringMultiline]; ACTIONS 9654 [sym_identifier];
   ACTIONS 9656 [sym_kSpecialize]; ACTIONS 9718 [sym_kAsm]; ACTIONS 9720 [sym_kBegin];
   ACTIONS 9722 [sym_kCase]; ACTIONS 9664 [sym_kConst]; ACTIONS 3278 [sym_kElse; sym_kEnd];
   ACTIONS 9726 [sym_kFor]; ACTIONS 9668 [sym_kFunction]; ACTIONS 9728 [sym_kGoto];
   ACTIONS 9730 [sym_kIf]; ACTIONS 9674 [sym_kInherited]; ACTIONS 9650 [sym_kNil];
   ACTIONS 9648 [sym_kNot]; ACTIONS 9668 [sym_kProcedure]; ACTIONS 9732 [sym_kRaise];
   ACTIONS 9734 [sym_kRepeat]; ACTIONS 9680 [sym_kString]; ACTIONS 9736 [sym_kTry];
   ACTIONS 9684 [sym_kVar]; ACTIONS 9738 [sym_kWhile]; ACTIONS 9740 [sym_kWith]].

(** State 1015. *)
Definition ts_parse_table_1015 : parse_row :=
  [STATE 12669 [sym_if]; STATE 12565 [sym_ifElse; sym_while; sym_repeat; sym_for; sym_foreach;
   sym_try; sym_case; sym_block; sym_asm; sym_with; sym_raise; sym_statement; sym_goto;
   sym_labeledStatement; sym__statement]; STATE 12996 [sym_ifTr; sym_ifElseTr; sym_whileTr;
   sym_repeatTr; sym_forTr; sym_foreachTr; sym_tryTr; sym_caseTr]; STATE 13296 [sym_blockTr];
   STATE 12996 [sym_asmTr; sym_withTr; sym_raiseTr; sym_statementTr; sym_gotoTr;
   sym_labeledStatementTr; sym__statementTr]; STATE 12775 [sym_assignment];
   STATE 11883 [sym_varAssignDef]; STATE 12775 [sym_varDef; sym_constDef];
   STATE 1170 [sym_label]; STATE 7815 [sym__expr; sym_exprConditional]; STATE 7341 [sym__ref;
   sym_lambda; sym_inherited; sym_exprDot; sym_exprDeref; sym_exprAs; sym_exprTpl;
   sym_exprSubscript; sym_exprCall]; STATE 7815 [sym_exprBinary; sym_exprUnary];
   STATE 7341 [sym_exprParens; sym_exprBrackets; sym__literal; sym_literalString];
   STATE 6534 [sym__literalString; sym_literalChar]; STATE 7341 [sym_literalNumber];
   STATE 7552 [sym__literalInt; sym__literalFloat]; STATE 6534 [aux_sym_literalString_repeat1];
   ACTIONS 9936 [anon_sym_SEMI]; ACTIONS 9634 [anon_sym_LBRACK]; ACTIONS 9636 [anon_sym_LPAREN];
   ACTIONS 9638 [aux_sym__literalString_token1]; ACTIONS 9640 [anon_sym_POUND];
   ACTIONS 9642 [aux_sym__literalInt_token1]; ACTIONS 9644 [aux_sym__literalInt_token2;
   aux_sym__literalInt_token3]; ACTIONS 9642 [aux_sym__literalFloat_token1];
   ACTIONS 9646 [sym_kAdd; sym_kSub]; ACTIONS 9648 [sym_kAt]; ACTIONS 9650 [sym_kTrue;
   sym_kFalse]; ACTIONS 9652 [sym_labelNumber]; ACTIONS 3 [sym__space];
   ACTIONS 5 [sym_ppDirective]; ACTIONS 3 [sym_comment]; ACTIONS 9650 [sym_ppFragmentExpr];
   ACTIONS 9638 [sym__literalStringMultiline]; ACTIONS 9654 [sym_identifier];
   ACTIONS 9656 [sym_kSpecialize]; ACTIONS 9718 [sym_kAsm]; ACTIONS 9720 [sym_kBegin];
   ACTIONS 9722 [sym_kCase]; ACTIONS 9664 [sym_kConst]; ACTIONS 3282 [sym_kElse; sym_kEnd];
   ACTIONS 9726 [sym_kFor]; ACTIONS 9668 [sym_kFunction]; ACTIONS 9728 [sym_kGoto];
   ACTIONS 9730 [sym_kIf]; ACTIONS 9674 [sym_kInherited]; ACTIONS 9650 [sym_kNil];
   ACTIONS 9648 [sym_kNot]; ACTIONS 9668 [sym_kProcedure]; ACTIONS 9732 [sym_kRaise];
   ACTIONS 9734 [sym_kRepeat]; ACTIONS 9680 [sym_kString]; ACTIONS 9736 [sym_kTry];
   ACTIONS 9684 [sym_kVar]; ACTIONS 9738 [sym_kWhile]; ACTIONS 9740 [sym_kWith]].

(** State 1016. *)
Definition ts_parse_table_1016 : parse_row :=
  [STATE 12669 [sym_if]; STATE 12653 [sym_ifElse; sym_while; sym_repeat; sym_for; sym_foreach;
   sym_try; sym_case; sym_block; sym_asm; sym_with; sym_raise; sym_statement; sym_goto];
   STATE 12648 [sym_labeledStatement]; STATE 12653 [sym__statement]; STATE 13031 [sym_ifTr;
   sym_ifElseTr; sym_whileTr; sym_repeatTr; sym_forTr; sym_foreachTr; sym_tryTr; sym_caseTr];
   STATE 13296 [sym_blockTr]; STATE 13031 [sym_asmTr; sym_withTr; sym_raiseTr; sym_statementTr;
   sym_gotoTr]; STATE 13029 [sym_labeledStatementTr]; STATE 13031 [sym__statementTr];
   STATE 12775 [sym_assignment]; STATE 11883 [sym_varAssignDef]; STATE 12775 [sym_varDef;
   sym_constDef]; STATE 1170 [sym_label]; STATE 7815 [sym__expr; sym_exprConditional];
   STATE 7341 [sym__ref; sym_lambda; sym_inherited; sym_exprDot; sym_exprDeref; sym_exprAs;
   sym_exprTpl; sym_exprSubscript; sym_exprCall]; STATE 7815 [sym_exprBinary; sym_exprUnary];
   STATE 7341 [sym_exprParens; sym_exprBrackets; sym__literal; sym_literalString];
   STATE 6534 [sym__literalString; sym_literalChar]; STATE 7341 [sym_literalNumber];
   STATE 7552 [sym__literalInt; sym__literalFloat]; STATE 6534 [aux_sym_literalString_repeat1];
   ACTIONS 9938 [anon_sym_SEMI]; ACTIONS 9634 [anon_sym_LBRACK]; ACTIONS 9636 [anon_sym_LPAREN];
   ACTIONS 9638 [aux_sym__literalString_token1]; ACTIONS 9640 [anon_sym_POUND];
   ACTIONS 9642 [aux_sym__literalInt_token1]; ACTIONS 9644 [aux_sym__literalInt_token2;
   aux_sym__literalInt_token3]; ACTIONS 9642 [aux_sym__literalFloat_token1];
   ACTIONS 9646 [sym_kAdd; sym_kSub]; ACTIONS 9648 [sym_kAt]; ACTIONS 9650 [sym_kTrue;
   sym_kFalse]; ACTIONS 9652 [sym_labelNumber]; ACTIONS 3 [sym__space];
   ACTIONS 5 [sym_ppDirective]; ACTIONS 3 [sym_comment]; ACTIONS 9650 [sym_ppFragmentExpr];
   ACTIONS 9638 [sym__literalStringMultiline]; ACTIONS 9654 [sym_identifier];
   ACTIONS 9656 [sym_kSpecialize]; ACTIONS 9718 [sym_kAsm]; ACTIONS 9720 [sym_kBegin];
   ACTIONS 9722 [sym_kCase]; ACTIONS 9664 [sym_kConst]; ACTIONS 3286 [sym_kElse; sym_kEnd];
   ACTIONS 9726 [sym_kFor]; ACTIONS 9668 [sym_kFunction]; ACTIONS 9728 [sym_kGoto];
   ACTIONS 9730 [sym_kIf]; ACTIONS 9674 [sym_kInherited]; ACTIONS 9650 [sym_kNil];
   ACTIONS 9648 [sym_kNot]; ACTIONS 9668 [sym_kProcedure]; ACTIONS 9732 [sym_kRaise];
   ACTIONS 9734 [sym_kRepeat]; ACTIONS 9680 [sym_kString]; ACTIONS 9736 [sym_kTry];
   ACTIONS 9684 [sym_kVar]; ACTIONS 9738 [sym_kWhile]; ACTIONS 9740 [sym_kWith]].

(** State 1017. *)
Definition ts_parse_table_1017 : parse_row :=
  [STATE 12669 [sym_if]; STATE 12688 [sym_ifElse; sym_while; sym_repeat; sym_for; sym_foreach;
   sym_try; sym_case; sym_block; sym_asm; sym_with; sym_raise; sym_statement; sym_goto;
   sym_labeledStatement; sym__statement]; STATE 13197 [sym_ifTr; sym_ifElseTr; sym_whileTr;
   sym_repeatTr; sym_forTr; sym_foreachTr; sym_tryTr; sym_caseTr]; STATE 13296 [sym_blockTr];
   STATE 13197 [sym_asmTr; sym_withTr; sym_raiseTr; sym_statementTr; sym_gotoTr;
   sym_labeledStatementTr; sym__statementTr]; STATE 12775 [sym_assignment];
   STATE 11883 [sym_varAssignDef]; STATE 12775 [sym_varDef; sym_constDef];
   STATE 1170 [sym_label]; STATE 7815 [sym__expr; sym_exprConditional]; STATE 7341 [sym__ref;
   sym_lambda; sym_inherited; sym_exprDot; sym_exprDeref; sym_exprAs; sym_exprTpl;
   sym_exprSubscript; sym_exprCall]; STATE 7815 [sym_exprBinary; sym_exprUnary];
   STATE 7341 [sym_exprParens; sym_exprBrackets; sym__literal; sym_literalString];
   STATE 6534 [sym__literalString; sym_literalChar]; STATE 7341 [sym_literalNumber];
   STATE 7552 [sym__literalInt; sym__literalFloat]; STATE 6534 [aux_sym_literalString_repeat1];
   ACTIONS 9940 [anon_sym_SEMI]; ACTIONS 9634 [anon_sym_LBRACK]; ACTIONS 9636 [anon_sym_LPAREN];
   ACTIONS 9638 [aux_sym__literalString_token1]; ACTIONS 9640 [anon_sym_POUND];
   ACTIONS 9642 [aux_sym__literalInt_token1]; ACTIONS 9644 [aux_sym__literalInt_token2;
   aux_sym__literalInt_token3]; ACTIONS 9642 [aux_sym__literalFloat_token1];
   ACTIONS 9646 [sym_kAdd; sym_kSub]; ACTIONS 9648 [sym_kAt]; ACTIONS 9650 [sym_kTrue;
   sym_kFalse]; ACTIONS 9652 [sym_labelNumber]; ACTIONS 3 [sym__space];
   ACTIONS 5 [sym_ppDirective]; ACTIONS 3 [sym_comment]; ACTIONS 9650 [sym_ppFragmentExpr];
   ACTIONS 9638 [sym__literalStringMultiline]; ACTIONS 9654 [sym_identifier];
   ACTIONS 9656 [sym_kSpecialize]; ACTIONS 9718 [sym_kAsm]; ACTIONS 9720 [sym_kBegin];
   ACTIONS 9722 [sym_kCase]; ACTIONS 9664 [sym_kConst]; ACTIONS 3290 [sym_kElse; sym_kEnd];
   ACTIONS 9726 [sym_kFor]; ACTIONS 9668 [sym_kFunction]; ACTIONS 9728 [sym_kGoto];
   ACTIONS 9730 [sym_kIf]; ACTIONS 9674 [sym_kInherited]; ACTIONS 9650 [sym_kNil];
   ACTIONS 9648 [sym_kNot]; ACTIONS 9668 [sym_kProcedure]; ACTIONS 9732 [sym_kRaise];
   ACTIONS 9734 [sym_kRepeat]; ACTIONS 9680 [sym_kString]; ACTIONS 9736 [sym_kTry];
   ACTIONS 9684 [sym_kVar]; ACTIONS 9738 [sym_kWhile]; ACTIONS 9740 [sym_kWith]].

(** State 1018. *)
Definition ts_parse_table_1018 : parse_row :=
  [STATE 12669 [sym_if]; STATE 12696 [sym_ifElse; sym_while; sym_repeat; sym_for; sym_foreach;
   sym_try; sym_case; sym_block; sym_asm; sym_with; sym_raise; sym_statement; sym_goto;
   sym_labeledStatement; sym__statement]; STATE 13198 [sym_ifTr; sym_ifElseTr; sym_whileTr;
   sym_repeatTr; sym_forTr; sym_foreachTr; sym_tryTr; sym_caseTr]; STATE 13296 [sym_blockTr];
   STATE 13198 [sym_asmTr; sym_withTr; sym_raiseTr; sym_statementTr; sym_gotoTr;
   sym_labeledStatementTr; sym__statementTr]; STATE 12775 [sym_assignment];
   STATE 11883 [sym_varAssignDef]; STATE 12775 [sym_varDef; sym_constDef];
   STATE 1170 [sym_label]; STATE 7815 [sym__expr; sym_exprConditional]; STATE 7341 [sym__ref;
   sym_lambda; sym_inherited; sym_exprDot; sym_exprDeref; sym_exprAs; sym_exprTpl;
   sym_exprSubscript; sym_exprCall]; STATE 7815 [sym_exprBinary; sym_exprUnary];
   STATE 7341 [sym_exprParens; sym_exprBrackets; sym__literal; sym_literalString];
   STATE 6534 [sym__literalString; sym_literalChar]; STATE 7341 [sym_literalNumber];
   STATE 7552 [sym__literalInt; sym__literalFloat]; STATE 6534 [aux_sym_literalString_repeat1];
   ACTIONS 9942 [anon_sym_SEMI]; ACTIONS 9634 [anon_sym_LBRACK]; ACTIONS 9636 [anon_sym_LPAREN];
   ACTIONS 9638 [aux_sym__literalString_token1]; ACTIONS 9640 [anon_sym_POUND];
   ACTIONS 9642 [aux_sym__literalInt_token1]; ACTIONS 9644 [aux_sym__literalInt_token2;
   aux_sym__literalInt_token3]; ACTIONS 9642 [aux_sym__literalFloat_token1];
   ACTIONS 9646 [sym_kAdd; sym_kSub]; ACTIONS 9648 [sym_kAt]; ACTIONS 9650 [sym_kTrue;
   sym_kFalse]; ACTIONS 9652 [sym_labelNumber]; ACTIONS 3 [sym__space];
   ACTIONS 5 [sym_ppDirective]; ACTIONS 3 [sym_comment]; ACTIONS 9650 [sym_ppFragmentExpr];
   ACTIONS 9638 [sym__literalStringMultiline]; ACTIONS 9654 [sym_identifier];
   ACTIONS 9656 [sym_kSpecialize]; ACTIONS 9718 [sym_kAsm]; ACTIONS 9720 [sym_kBegin];
   ACTIONS 9722 [sym_kCase]; ACTIONS 9664 [sym_kConst]; ACTIONS 3296 [sym_kElse; sym_kEnd];
   ACTIONS 9726 [sym_kFor]; ACTIONS 9668 [sym_kFunction]; ACTIONS 9728 [sym_kGoto];
   ACTIONS 9730 [sym_kIf]; ACTIONS 9674 [sym_kInherited]; ACTIONS 9650 [sym_kNil];
   ACTIONS 9648 [sym_kNot]; ACTIONS 9668 [sym_kProcedure]; ACTIONS 9732 [sym_kRaise];
   ACTIONS 9734 [sym_kRepeat]; ACTIONS 9680 [sym_kString]; ACTIONS 9736 [sym_kTry];
   ACTIONS 9684 [sym_kVar]; ACTIONS 9738 [sym_kWhile]; ACTIONS 9740 [sym_kWith]].

(** State 1019. *)
Definition ts_parse_table_1019 : parse_row :=
  [STATE 12669 [sym_if]; STATE 12715 [sym_ifElse; sym_while; sym_repeat; sym_for; sym_foreach;
   sym_try; sym_case; sym_block; sym_asm; sym_with; sym_raise; sym_statement; sym_goto;
   sym_labeledStatement; sym__statement]; STATE 13203 [sym_ifTr; sym_ifElseTr; sym_whileTr;
   sym_repeatTr; sym_forTr; sym_foreachTr; sym_tryTr; sym_caseTr]; STATE 13296 [sym_blockTr];
   STATE 13203 [sym_asmTr; sym_withTr; sym_raiseTr; sym_statementTr; sym_gotoTr;
   sym_labeledStatementTr; sym__statementTr]; STATE 12775 [sym_assignment];
   STATE 11883 [sym_varAssignDef]; STATE 12775 [sym_varDef; sym_constDef];
   STATE 1170 [sym_label]; STATE 7815 [sym__expr; sym_exprConditional]; STATE 7341 [sym__ref;
   sym_lambda; sym_inherited; sym_exprDot; sym_exprDeref; sym_exprAs; sym_exprTpl;
   sym_exprSubscript; sym_exprCall]; STATE 7815 [sym_exprBinary; sym_exprUnary];
   STATE 7341 [sym_exprParens; sym_exprBrackets; sym__literal; sym_literalString];
   STATE 6534 [sym__literalString; sym_literalChar]; STATE 7341 [sym_literalNumber];
   STATE 7552 [sym__literalInt; sym__literalFloat]; STATE 6534 [aux_sym_literalString_repeat1];
   ACTIONS 9944 [anon_sym_SEMI]; ACTIONS 9634 [anon_sym_LBRACK]; ACTIONS 9636 [anon_sym_LPAREN];
   ACTIONS 9638 [aux_sym__literalString_token1]; ACTIONS 9640 [anon_sym_POUND];
   ACTIONS 9642 [aux_sym__literalInt_token1]; ACTIONS 9644 [aux_sym__literalInt_token2;
   aux_sym__literalInt_token3]; ACTIONS 9642 [aux_sym__literalFloat_token1];
   ACTIONS 9646 [sym_kAdd; sym_kSub]; ACTIONS 9648 [sym_kAt]; ACTIONS 9650 [sym_kTrue;
   sym_kFalse]; ACTIONS 9652 [sym_labelNumber]; ACTIONS 3 [sym__space];
   ACTIONS 5 [sym_ppDirective]; ACTIONS 3 [sym_comment]; ACTIONS 9650 [sym_ppFragmentExpr];
   ACTIONS 9638 [sym__literalStringMultiline]; ACTIONS 9654 [sym_identifier];
   ACTIONS 9656 [sym_kSpecialize]; ACTIONS 9718 [sym_kAsm]; ACTIONS 9720 [sym_kBegin];
   ACTIONS 9722 [sym_kCase]; ACTIONS 9664 [sym_kConst]; ACTIONS 3304 [sym_kElse; sym_kEnd];
   ACTIONS 9726 [sym_kFor]; ACTIONS 9668 [sym_kFunction]; ACTIONS 9728 [sym_kGoto];
   ACTIONS 9730 [sym_kIf]; ACTIONS 9674 [sym_kInherited]; ACTIONS 9650 [sym_kNil];
   ACTIONS 9648 [sym_kNot]; ACTIONS 9668 [sym_kProcedure]; ACTIONS 9732 [sym_kRaise];
   ACTIONS 9734 [sym_kRepeat]; ACTIONS 9680 [sym_kString]; ACTIONS 9736 [sym_kTry];
   ACTIONS 9684 [sym_kVar]; ACTIONS 9738 [sym_kWhile]; ACTIONS 9740 [sym_kWith]].

(** State 1020. *)
Definition ts_parse_table_1020 : parse_row :=
  [ACTIONS 9946 [anon_sym_SEMI; anon_sym_COMMA; anon_sym_LBRACK]; ACTIONS 9948 [anon_sym_LPAREN];
   ACTIONS 9946 [aux_sym__literalString_token1; anon_sym_POUND];
   ACTIONS 9948 [aux_sym__literalInt_token1]; ACTIONS 9946 [aux_sym__literalInt_token2;
   aux_sym__literalInt_token3]; ACTIONS 9948 [aux_sym__literalFloat_token1];
   ACTIONS 9946 [aux_sym_ppUsesBlock_token1; aux_sym_ppUsesBlock_token2;
   aux_sym_ppUsesBlock_token3]; ACTIONS 9948 [sym_kAdd; sym_kSub]; ACTIONS 9946 [sym_kAt;
   sym_kTrue; sym_kFalse]; ACTIONS 3 [sym__space]; ACTIONS 5 [sym_ppDirective];
   ACTIONS 3 [sym_comment]; ACTIONS 9946 [sym_ppFragmentExpr; sym__literalStringMultiline;
   sym_identifier; sym_kDefault; sym_kNodefault; sym_kDispId; sym_kGeneric; sym_kSpecialize;
   sym_kOperator; sym_kPublic; sym_kForward; sym_kStatic; sym_kVirtual; sym_kAbstract;
   sym_kDynamic; sym_kOverride; sym_kOverload; sym_kReintroduce; sym_kStdcall; sym_kCdecl;
   sym_kCppdecl; sym_kPascal; sym_kRegister; sym_kMwpascal; sym_kExternal; sym_kMessage;
   sym_kDeprecated; sym_kExperimental; sym_kPlatform; sym_kUnimplemented; sym_kCvar; sym_kExport;
   sym_kFar; sym_kNear; sym_kSafecall; sym_kAssembler; sym_kNostackframe; sym_kInterrupt;
   sym_kNoreturn; sym_kIocheck; sym_kLocal; sym_kHardfloat; sym_kSoftfloat; sym_kMs_abi_default;
   sym_kMs_abi_cdecl; sym_kSaveregisters; sym_kSysv_abi_default; sym_kSysv_abi_cdecl;
   sym_kVectorcall; sym_kVarargs; sym_kWinapi; sym_kAlias; sym_kAsm; sym_kBegin; sym_kCase;
   sym_kClass; sym_kConst; sym_kConstructor; sym_kDestructor; sym_kExports; sym_kFor;
   sym_kFunction; sym_kGoto; sym_kIf; sym_kInherited; sym_kInline; sym_kLabel; sym_kNil;
   sym_kNot; sym_kProcedure; sym_kProperty; sym_kRaise; sym_kRepeat; sym_kResourcestring;
   sym_kString; sym_kThreadvar; sym_kTry; sym_kType; sym_kUses; sym_kVar; sym_kWhile; sym_kWith]].

(** State 1021. *)
Definition ts_parse_table_1021 : parse_row :=
  [STATE 6113 [sym_if]; STATE 6089 [sym_ifElse; sym_while; sym_repeat; sym_for; sym_foreach;
   sym_try; sym_case; sym_block; sym_asm; sym_with; sym_raise; sym_statement; sym_goto;
   sym_labeledStatement; sym__statement]; STATE 13240 [sym_ifTr; sym_ifElseTr; sym_whileTr;
   sym_repeatTr; sym_forTr; sym_foreachTr; sym_tryTr; sym_caseTr]; STATE 13296 [sym_blockTr];
   STATE 13240 [sym_asmTr; sym_withTr; sym_raiseTr; sym_statementTr; sym_gotoTr;
   sym_labeledStatementTr; sym__statementTr]; STATE 12733 [sym_assignment];
   STATE 11883 [sym_varAssignDef]; STATE 12733 [sym_varDef; sym_constDef];
   STATE 1186 [sym_label]; STATE 7784 [sym__expr; sym_exprConditional]; STATE 7341 [sym__ref;
   sym_lambda; sym_inherited; sym_exprDot; sym_exprDeref; sym_exprAs; sym_exprTpl;
   sym_exprSubscript; sym_exprCall]; STATE 7784 [sym_exprBinary; sym_exprUnary];
   STATE 7341 [sym_exprParens; sym_exprBrackets; sym__literal; sym_literalString];
   STATE 6534 [sym__literalString; sym_literalChar]; STATE 7341 [sym_literalNumber];
   STATE 7552 [sym__literalInt; sym__literalFloat]; STATE 6534 [aux_sym_literalString_repeat1];
   ACTIONS 9950 [anon_sym_SEMI]; ACTIONS 9634 [anon_sym_LBRACK]; ACTIONS 9636 [anon_sym_LPAREN];
   ACTIONS 9638 [aux_sym__literalString_token1]; ACTIONS 9640 [anon_sym_POUND];
   ACTIONS 9642 [aux_sym__literalInt_token1]; ACTIONS 9644 [aux_sym__literalInt_token2;
   aux_sym__literalInt_token3]; ACTIONS 9642 [aux_sym__literalFloat_token1];
   ACTIONS 9646 [sym_kAdd; sym_kSub]; ACTIONS 9648 [sym_kAt]; ACTIONS 9650 [sym_kTrue;
   sym_kFalse]; ACTIONS 9652 [sym_labelNumber]; ACTIONS 3 [sym__space];
   ACTIONS 5 [sym_ppDirective]; ACTIONS 3 [sym_comment]; ACTIONS 9650 [sym_ppFragmentExpr];
   ACTIONS 9638 [sym__literalStringMultiline]; ACTIONS 9654 [sym_identifier];
   ACTIONS 9656 [sym_kSpecialize]; ACTIONS 9658 [sym_kAsm]; ACTIONS 9660 [sym_kBegin];
   ACTIONS 9662 [sym_kCase]; ACTIONS 9664 [sym_kConst]; ACTIONS 3272 [sym_kElse; sym_kEnd];
   ACTIONS 9666 [sym_kFor]; ACTIONS 9668 [sym_kFunction]; ACTIONS 9670 [sym_kGoto];
   ACTIONS 9672 [sym_kIf]; ACTIONS 9674 [sym_kInherited]; ACTIONS 9650 [sym_kNil];
   ACTIONS 9648 [sym_kNot]; ACTIONS 9668 [sym_kProcedure]; ACTIONS 9676 [sym_kRaise];
   ACTIONS 9678 [sym_kRepeat]; ACTIONS 9680 [sym_kString]; ACTIONS 9682 [sym_kTry];
   ACTIONS 9684 [sym_kVar]; ACTIONS 9686 [sym_kWhile]; ACTIONS 9688 [sym_kWith]].

(** State 1022. *)
Definition ts_parse_table_1022 : parse_row :=
  [STATE 6113 [sym_if]; STATE 6090 [sym_ifElse; sym_while; sym_repeat; sym_for; sym_foreach;
   sym_try; sym_case; sym_block; sym_asm; sym_with; sym_raise; sym_statement; sym_goto;
   sym_labeledStatement; sym__statement]; STATE 13252 [sym_ifTr; sym_ifElseTr; sym_whileTr;
   sym_repeatTr; sym_forTr; sym_foreachTr; sym_tryTr; sym_caseTr]; STATE 13296 [sym_blockTr];
   STATE 13252 [sym_asmTr; sym_withTr; sym_raiseTr; sym_statementTr; sym_gotoTr;
   sym_labeledStatementTr; sym__statementTr]; STATE 12733 [sym_assignment];
   STATE 11883 [sym_varAssignDef]; STATE 12733 [sym_varDef; sym_constDef];
   STATE 1186 [sym_label]; STATE 7784 [sym__expr; sym_exprConditional]; STATE 7341 [sym__ref;
   sym_lambda; sym_inherited; sym_exprDot; sym_exprDeref; sym_exprAs; sym_exprTpl;
   sym_exprSubscript; sym_exprCall]; STATE 7784 [sym_exprBinary; sym_exprUnary];
   STATE 7341 [sym_exprParens; sym_exprBrackets; sym__literal; sym_literalString];
   STATE 6534 [sym__literalString; sym_literalChar]; STATE 7341 [sym_literalNumber];
   STATE 7552 [sym__literalInt; sym__literalFloat]; STATE 6534 [aux_sym_literalString_repeat1];
   ACTIONS 9952 [anon_sym_SEMI]; ACTIONS 9634 [anon_sym_LBRACK]; ACTIONS 9636 [anon_sym_LPAREN];
   ACTIONS 9638 [aux_sym__literalString_token1]; ACTIONS 9640 [anon_sym_POUND];
   ACTIONS 9642 [aux_sym__literalInt_token1]; ACTIONS 9644 [aux_sym__literalInt_token2;
   aux_sym__literalInt_token3]; ACTIONS 9642 [aux_sym__literalFloat_token1];
   ACTIONS 9646 [sym_kAdd; sym_kSub]; ACTIONS 9648 [sym_kAt]; ACTIONS 9650 [sym_kTrue;
   sym_kFalse]; ACTIONS 9652 [sym_labelNumber]; ACTIONS 3 [sym__space];
   ACTIONS 5 [sym_ppDirective]; ACTIONS 3 [sym_comment]; ACTIONS 9650 [sym_ppFragmentExpr];
   ACTIONS 9638 [sym__literalStringMultiline]; ACTIONS 9654 [sym_identifier];
   ACTIONS 9656 [sym_kSpecialize]; ACTIONS 9658 [sym_kAsm]; ACTIONS 9660 [sym_kBegin];
   ACTIONS 9662 [sym_kCase]; ACTIONS 9664 [sym_kConst]; ACTIONS 3278 [sym_kElse; sym_kEnd];
   ACTIONS 9666 [sym_kFor]; ACTIONS 9668 [sym_kFunction]; ACTIONS 9670 [sym_kGoto];
   ACTIONS 9672 [sym_kIf]; ACTIONS 9674 [sym_kInherited]; ACTIONS 9650 [sym_kNil];
   ACTIONS 9648 [sym_kNot]; ACTIONS 9668 [sym_kProcedure]; ACTIONS 9676 [sym_kRaise];
   ACTIONS 9678 [sym_kRepeat]; ACTIONS 9680 [sym_kString]; ACTIONS 9682 [sym_kTry];
   ACTIONS 9684 [sym_kVar]; ACTIONS 9686 [sym_kWhile]; ACTIONS 9688 [sym_kWith]].

(** State 1023. *)
Definition ts_parse_table_1023 : parse_row :=
  [STATE 6113 [sym_if]; STATE 6093 [sym_ifElse; sym_while; sym_repeat; sym_for; sym_foreach;
   sym_try; sym_case; sym_block; sym_asm; sym_with; sym_raise; sym_statement; sym_goto;
   sym_labeledStatement; sym__statement]; STATE 12996 [sym_ifTr; sym_ifElseTr; sym_whileTr;
   sym_repeatTr; sym_forTr; sym_foreachTr; sym_tryTr; sym_caseTr]; STATE 13296 [sym_blockTr];
   STATE 12996 [sym_asmTr; sym_withTr; sym_raiseTr; sym_statementTr; sym_gotoTr;
   sym_labeledStatementTr; sym__statementTr]; STATE 12733 [sym_assignment];
   STATE 11883 [sym_varAssignDef]; STATE 12733 [sym_varDef; sym_constDef];
   STATE 1186 [sym_label]; STATE 7784 [sym__expr; sym_exprConditional]; STATE 7341 [sym__ref;
   sym_lambda; sym_inherited; sym_exprDot; sym_exprDeref; sym_exprAs; sym_exprTpl;
   sym_exprSubscript; sym_exprCall]; STATE 7784 [sym_exprBinary; sym_exprUnary];
   STATE 7341 [sym_exprParens; sym_exprBrackets; sym__literal; sym_literalString];
   STATE 6534 [sym__literalString; sym_literalChar]; STATE 7341 [sym_literalNumber];
   STATE 7552 [sym__literalInt; sym__literalFloat]; STATE 6534 [aux_sym_literalString_repeat1];
   ACTIONS 9954 [anon_sym_SEMI]; ACTIONS 9634 [anon_sym_LBRACK]; ACTIONS 9636 [anon_sym_LPAREN];
   ACTIONS 9638 [aux_sym__literalString_token1]; ACTIONS 9640 [anon_sym_POUND];
   ACTIONS 9642 [aux_sym__literalInt_token1]; ACTIONS 9644 [aux_sym__literalInt_token2;
   aux_sym__literalInt_token3]; ACTIONS 9642 [aux_sym__literalFloat_token1];
   ACTIONS 9646 [sym_kAdd; sym_kSub]; ACTIONS 9648 [sym_kAt]; ACTIONS 9650 [sym_kTrue;
   sym_kFalse]; ACTIONS 9652 [sym_labelNumber]; ACTIONS 3 [sym__space];
   ACTIONS 5 [sym_ppDirective]; ACTIONS 3 [sym_comment]; ACTIONS 9650 [sym_ppFragmentExpr];
   ACTIONS 9638 [sym__literalStringMultiline]; ACTIONS 9654 [sym_identifier];
   ACTIONS 9656 [sym_kSpecialize]; ACTIONS 9658 [sym_kAsm]; ACTIONS 9660 [sym_kBegin];
   ACTIONS 9662 [sym_kCase]; ACTIONS 9664 [sym_kConst]; ACTIONS 3282 [sym_kElse; sym_kEnd];
   ACTIONS 9666 [sym_kFor]; ACTIONS 9668 [sym_kFunction]; ACTIONS 9670 [sym_kGoto];
   ACTIONS 9672 [sym_kIf]; ACTIONS 9674 [sym_kInherited]; ACTIONS 9650 [sym_kNil];
   ACTIONS 9648 [sym_kNot]; ACTIONS 9668 [sym_kProcedure]; ACTIONS 9676 [sym_kRaise];
   ACTIONS 9678 [sym_kRepeat]; ACTIONS 9680 [sym_kString]; ACTIONS 9682 [sym_kTry];
   ACTIONS 9684 [sym_kVar]; ACTIONS 9686 [sym_kWhile]; ACTIONS 9688 [sym_kWith]].

(** State 1024. *)
Definition ts_parse_table_1024 : parse_row :=
  [STATE 6058 [sym_if]; STATE 6340 [sym_ifElse; sym_while; sym_repeat; sym_for; sym_foreach;
   sym_try; sym_case; sym_block; sym_asm; sym_with; sym_raise; sym_statement; sym_goto;
   sym_labeledStatement; sym__statement]; STATE 13809 [sym_ifTr; sym_ifElseTr; sym_whileTr;
   sym_repeatTr; sym_forTr; sym_foreachTr; sym_tryTr; sym_caseTr]; STATE 13195 [sym_blockTr];
   STATE 13809 [sym_asmTr; sym_withTr; sym_raiseTr; sym_statementTr; sym_gotoTr;
   sym_labeledStatementTr; sym__statementTr]; STATE 12722 [sym_assignment];
   STATE 11921 [sym_varAssignDef]; STATE 12722 [sym_varDef; sym_constDef];
   STATE 1109 [sym_label]; STATE 7785 [sym__expr; sym_exprConditional]; STATE 7326 [sym__ref;
   sym_lambda; sym_inherited; sym_exprDot; sym_exprDeref; sym_exprAs; sym_exprTpl;
   sym_exprSubscript; sym_exprCall]; STATE 7785 [sym_exprBinary; sym_exprUnary];
   STATE 7326 [sym_exprParens; sym_exprBrackets; sym__literal; sym_literalString];
   STATE 6591 [sym__literalString; sym_literalChar]; STATE 7326 [sym_literalNumber];
   STATE 7474 [sym__literalInt; sym__literalFloat]; STATE 6591 [aux_sym_literalString_repeat1];
   ACTIONS 9956 [anon_sym_SEMI]; ACTIONS 9754 [anon_sym_LBRACK]; ACTIONS 9756 [anon_sym_LPAREN];
   ACTIONS 9758 [aux_sym__literalString_token1]; ACTIONS 9760 [anon_sym_POUND];
   ACTIONS 9762 [aux_sym__literalInt_token1]; ACTIONS 9764 [aux_sym__literalInt_token2;
   aux_sym__literalInt_token3]; ACTIONS 9762 [aux_sym__literalFloat_token1];
   ACTIONS 9766 [sym_kAdd; sym_kSub]; ACTIONS 9768 [sym_kAt]; ACTIONS 9770 [sym_kTrue;
   sym_kFalse]; ACTIONS 9772 [sym_labelNumber]; ACTIONS 3 [sym__space];
   ACTIONS 5 [sym_ppDirective]; ACTIONS 3 [sym_comment]; ACTIONS 9770 [sym_ppFragmentExpr];
   ACTIONS 9758 [sym__literalStringMultiline]; ACTIONS 9774 [sym_identifier];
   ACTIONS 9776 [sym_kSpecialize]; ACTIONS 9876 [sym_kAsm]; ACTIONS 9878 [sym_kBegin];
   ACTIONS 9880 [sym_kCase]; ACTIONS 9784 [sym_kConst]; ACTIONS 9958 [sym_kElse];
   ACTIONS 9882 [sym_kFor]; ACTIONS 9788 [sym_kFunction]; ACTIONS 9884 [sym_kGoto];
   ACTIONS 9960 [sym_kIf]; ACTIONS 9794 [sym_kInherited]; ACTIONS 9770 [sym_kNil];
   ACTIONS 9768 [sym_kNot]; ACTIONS 9788 [sym_kProcedure]; ACTIONS 9888 [sym_kRaise];
   ACTIONS 9890 [sym_kRepeat]; ACTIONS 9800 [sym_kString]; ACTIONS 9892 [sym_kTry];
   ACTIONS 3230 [sym_kUntil]; ACTIONS 9804 [sym_kVar]; ACTIONS 9894 [sym_kWhile];
   ACTIONS 9896 [sym_kWith]].

(** State 1025. *)
Definition ts_parse_table_1025 : parse_row :=
  [STATE 6213 [sym_if]; STATE 6179 [sym_ifElse; sym_while; sym_repeat; sym_for; sym_foreach;
   sym_try; sym_case; sym_block; sym_asm; sym_with; sym_raise; sym_statement; sym_goto;
   sym_labeledStatement; sym__statement]; STATE 12996 [sym_ifTr; sym_ifElseTr; sym_whileTr;
   sym_repeatTr; sym_forTr; sym_foreachTr; sym_tryTr; sym_caseTr]; STATE 13296 [sym_blockTr];
   STATE 12996 [sym_asmTr; sym_withTr; sym_raiseTr; sym_statementTr; sym_gotoTr;
   sym_labeledStatementTr; sym__statementTr]; STATE 12751 [sym_assignment];
   STATE 11883 [sym_varAssignDef]; STATE 12751 [sym_varDef; sym_constDef];
   STATE 1133 [sym_label]; STATE 7864 [sym__expr; sym_exprConditional]; STATE 7341 [sym__ref;
   sym_lambda; sym_inherited; sym_exprDot; sym_exprDeref; sym_exprAs; sym_exprTpl;
   sym_exprSubscript; sym_exprCall]; STATE 7864 [sym_exprBinary; sym_exprUnary];
   STATE 7341 [sym_exprParens; sym_exprBrackets; sym__literal; sym_literalString];
   STATE 6534 [sym__literalString; sym_literalChar]; STATE 7341 [sym_literalNumber];
   STATE 7552 [sym__literalInt; sym__literalFloat]; STATE 6534 [aux_sym_literalString_repeat1];
   ACTIONS 9962 [anon_sym_SEMI]; ACTIONS 9634 [anon_sym_LBRACK]; ACTIONS 9636 [anon_sym_LPAREN];
   ACTIONS 9638 [aux_sym__literalString_token1]; ACTIONS 9640 [anon_sym_POUND];
   ACTIONS 9642 [aux_sym__literalInt_token1]; ACTIONS 9644 [aux_sym__literalInt_token2;
   aux_sym__literalInt_token3]; ACTIONS 9642 [aux_sym__literalFloat_token1];
   ACTIONS 9646 [sym_kAdd; sym_kSub]; ACTIONS 9648 [sym_kAt]; ACTIONS 9650 [sym_kTrue;
   sym_kFalse]; ACTIONS 9652 [sym_labelNumber]; ACTIONS 3 [sym__space];
   ACTIONS 5 [sym_ppDirective]; ACTIONS 3 [sym_comment]; ACTIONS 9650 [sym_ppFragmentExpr];
   ACTIONS 9638 [sym__literalStringMultiline]; ACTIONS 9654 [sym_identifier];
   ACTIONS 9656 [sym_kSpecialize]; ACTIONS 9692 [sym_kAsm]; ACTIONS 9694 [sym_kBegin];
   ACTIONS 9696 [sym_kCase]; ACTIONS 9664 [sym_kConst]; ACTIONS 3282 [sym_kElse; sym_kEnd];
   ACTIONS 9698 [sym_kFor]; ACTIONS 9668 [sym_kFunction]; ACTIONS 9700 [sym_kGoto];
   ACTIONS 9702 [sym_kIf]; ACTIONS 9674 [sym_kInherited]; ACTIONS 9650 [sym_kNil];
   ACTIONS 9648 [sym_kNot]; ACTIONS 9668 [sym_kProcedure]; ACTIONS 9704 [sym_kRaise];
   ACTIONS 9706 [sym_kRepeat]; ACTIONS 9680 [sym_kString]; ACTIONS 9708 [sym_kTry];
   ACTIONS 9684 [sym_kVar]; ACTIONS 9710 [sym_kWhile]; ACTIONS 9712 [sym_kWith]].

(** State 1026. *)
Definition ts_parse_table_1026 : parse_row :=
  [STATE 6113 [sym_if]; STATE 6104 [sym_ifElse; sym_while; sym_repeat; sym_for; sym_foreach;
   sym_try; sym_case; sym_block; sym_asm; sym_with; sym_raise; sym_statement; sym_goto;
   sym_labeledStatement; sym__statement]; STATE 13197 [sym_ifTr; sym_ifElseTr; sym_whileTr;
   sym_repeatTr; sym_forTr; sym_foreachTr; sym_tryTr; sym_caseTr]; STATE 13296 [sym_blockTr];
   STATE 13197 [sym_asmTr; sym_withTr; sym_raiseTr; sym_statementTr; sym_gotoTr;
   sym_labeledStatementTr; sym__statementTr]; STATE 12733 [sym_assignment];
   STATE 11883 [sym_varAssignDef]; STATE 12733 [sym_varDef; sym_constDef];
   STATE 1186 [sym_label]; STATE 7784 [sym__expr; sym_exprConditional]; STATE 7341 [sym__ref;
   sym_lambda; sym_inherited; sym_exprDot; sym_exprDeref; sym_exprAs; sym_exprTpl;
   sym_exprSubscript; sym_exprCall]; STATE 7784 [sym_exprBinary; sym_exprUnary];
   STATE 7341 [sym_exprParens; sym_exprBrackets; sym__literal; sym_literalString];
   STATE 6534 [sym__literalString; sym_literalChar]; STATE 7341 [sym_literalNumber];
   STATE 7552 [sym__literalInt; sym__literalFloat]; STATE 6534 [aux_sym_literalString_repeat1];
   ACTIONS 9964 [anon_sym_SEMI]; ACTIONS 9634 [anon_sym_LBRACK]; ACTIONS 9636 [anon_sym_LPAREN];
   ACTIONS 9638 [aux_sym__literalString_token1]; ACTIONS 9640 [anon_sym_POUND];
   ACTIONS 9642 [aux_sym__literalInt_token1]; ACTIONS 9644 [aux_sym__literalInt_token2;
   aux_sym__literalInt_token3]; ACTIONS 9642 [aux_sym__literalFloat_token1];
   ACTIONS 9646 [sym_kAdd; sym_kSub]; ACTIONS 9648 [sym_kAt]; ACTIONS 9650 [sym_kTrue;
   sym_kFalse]; ACTIONS 9652 [sym_labelNumber]; ACTIONS 3 [sym__space];
   ACTIONS 5 [sym_ppDirective]; ACTIONS 3 [sym_comment]; ACTIONS 9650 [sym_ppFragmentExpr];
   ACTIONS 9638 [sym__literalStringMultiline]; ACTIONS 9654 [sym_identifier];
   ACTIONS 9656 [sym_kSpecialize]; ACTIONS 9658 [sym_kAsm]; ACTIONS 9660 [sym_kBegin];
   ACTIONS 9662 [sym_kCase]; ACTIONS 9664 [sym_kConst]; ACTIONS 3290 [sym_kElse; sym_kEnd];
   ACTIONS 9666 [sym_kFor]; ACTIONS 9668 [sym_kFunction]; ACTIONS 9670 [sym_kGoto];
   ACTIONS 9672 [sym_kIf]; ACTIONS 9674 [sym_kInherited]; ACTIONS 9650 [sym_kNil];
   ACTIONS 9648 [sym_kNot]; ACTIONS 9668 [sym_kProcedure]; ACTIONS 9676 [sym_kRaise];
   ACTIONS 9678 [sym_kRepeat]; ACTIONS 9680 [sym_kString]; ACTIONS 9682 [sym_kTry];
   ACTIONS 9684 [sym_kVar]; ACTIONS 9686 [sym_kWhile]; ACTIONS 9688 [sym_kWith]].

(** State 1027. *)
Definition ts_parse_table_1027 : parse_row :=
  [STATE 6113 [sym_if]; STATE 6105 [sym_ifElse; sym_while; sym_repeat; sym_for; sym_foreach;
   sym_try; sym_case; sym_block; sym_asm; sym_with; sym_raise; sym_statement; sym_goto;
   sym_labeledStatement; sym__statement]; STATE 13198 [sym_ifTr; sym_ifElseTr; sym_whileTr;
   sym_repeatTr; sym_forTr; sym_foreachTr; sym_tryTr; sym_caseTr]; STATE 13296 [sym_blockTr];
   STATE 13198 [sym_asmTr; sym_withTr; sym_raiseTr; sym_statementTr; sym_gotoTr;
   sym_labeledStatementTr; sym__statementTr]; STATE 12733 [sym_assignment];
   STATE 11883 [sym_varAssignDef]; STATE 12733 [sym_varDef; sym_constDef];
   STATE 1186 [sym_label]; STATE 7784 [sym__expr; sym_exprConditional]; STATE 7341 [sym__ref;
   sym_lambda; sym_inherited; sym_exprDot; sym_exprDeref; sym_exprAs; sym_exprTpl;
   sym_exprSubscript; sym_exprCall]; STATE 7784 [sym_exprBinary; sym_exprUnary];
   STATE 7341 [sym_exprParens; sym_exprBrackets; sym__literal; sym_literalString];
   STATE 6534 [sym__literalString; sym_literalChar]; STATE 7341 [sym_literalNumber];
   STATE 7552 [sym__literalInt; sym__literalFloat]; STATE 6534 [aux_sym_literalString_repeat1];
   ACTIONS 9966 [anon_sym_SEMI]; ACTIONS 9634 [anon_sym_LBRACK]; ACTIONS 9636 [anon_sym_LPAREN];
   ACTIONS 9638 [aux_sym__literalString_token1]; ACTIONS 9640 [anon_sym_POUND];
   ACTIONS 9642 [aux_sym__literalInt_token1]; ACTIONS 9644 [aux_sym__literalInt_token2;
   aux_sym__literalInt_token3]; ACTIONS 9642 [aux_sym__literalFloat_token1];
   ACTIONS 9646 [sym_kAdd; sym_kSub]; ACTIONS 9648 [sym_kAt]; ACTIONS 9650 [sym_kTrue;
   sym_kFalse]; ACTIONS 9652 [sym_labelNumber]; ACTIONS 3 [sym__space];
   ACTIONS 5 [sym_ppDirective]; ACTIONS 3 [sym_comment]; ACTIONS 9650 [sym_ppFragmentExpr];
   ACTIONS 9638 [sym__literalStringMultiline]; ACTIONS 9654 [sym_identifier];
   ACTIONS 9656 [sym_kSpecialize]; ACTIONS 9658 [sym_kAsm]; ACTIONS 9660 [sym_kBegin];
   ACTIONS 9662 [sym_kCase]; ACTIONS 9664 [sym_kConst]; ACTIONS 3296 [sym_kElse; sym_kEnd];
   ACTIONS 9666 [sym_kFor]; ACTIONS 9668 [sym_kFunction]; ACTIONS 9670 [sym_kGoto];
   ACTIONS 9672 [sym_kIf]; ACTIONS 9674 [sym_kInherited]; ACTIONS 9650 [sym_kNil];
   ACTIONS 9648 [sym_kNot]; ACTIONS 9668 [sym_kProcedure]; ACTIONS 9676 [sym_kRaise];
   ACTIONS 9678 [sym_kRepeat]; ACTIONS 9680 [sym_kString]; ACTIONS 9682 [sym_kTry];
   ACTIONS 9684 [sym_kVar]; ACTIONS 9686 [sym_kWhile]; ACTIONS 9688 [sym_kWith]].

(** State 1028. *)
Definition ts_parse_table_1028 : parse_row :=
  [STATE 6113 [sym_if]; STATE 6106 [sym_ifElse; sym_while; sym_repeat; sym_for; sym_foreach;
   sym_try; sym_case; sym_block; sym_asm; sym_with; sym_raise; sym_statement; sym_goto;
   sym_labeledStatement; sym__statement]; STATE 13203 [sym_ifTr; sym_ifElseTr; sym_whileTr;
   sym_repeatTr; sym_forTr; sym_foreachTr; sym_tryTr; sym_caseTr]; STATE 13296 [sym_blockTr];
   STATE 13203 [sym_asmTr; sym_withTr; sym_raiseTr; sym_statementTr; sym_gotoTr;
   sym_labeledStatementTr; sym__statementTr]; STATE 12733 [sym_assignment];
   STATE 11883 [sym_varAssignDef]; STATE 12733 [sym_varDef; sym_constDef];
   STATE 1186 [sym_label]; STATE 7784 [sym__expr; sym_exprConditional]; STATE 7341 [sym__ref;
   sym_lambda; sym_inherited; sym_exprDot; sym_exprDeref; sym_exprAs; sym_exprTpl;
   sym_exprSubscript; sym_exprCall]; STATE 7784 [sym_exprBinary; sym_exprUnary];
   STATE 7341 [sym_exprParens; sym_exprBrackets; sym__literal; sym_literalString];
   STATE 6534 [sym__literalString; sym_literalChar]; STATE 7341 [sym_literalNumber];
   STATE 7552 [sym__literalInt; sym__literalFloat]; STATE 6534 [aux_sym_literalString_repeat1];
   ACTIONS 9968 [anon_sym_SEMI]; ACTIONS 9634 [anon_sym_LBRACK]; ACTIONS 9636 [anon_sym_LPAREN];
   ACTIONS 9638 [aux_sym__literalString_token1]; ACTIONS 9640 [anon_sym_POUND];
   ACTIONS 9642 [aux_sym__literalInt_token1]; ACTIONS 9644 [aux_sym__literalInt_token2;
   aux_sym__literalInt_token3]; ACTIONS 9642 [aux_sym__literalFloat_token1];
   ACTIONS 9646 [sym_kAdd; sym_kSub]; ACTIONS 9648 [sym_kAt]; ACTIONS 9650 [sym_kTrue;
   sym_kFalse]; ACTIONS 9652 [sym_labelNumber]; ACTIONS 3 [sym__space];
   ACTIONS 5 [sym_ppDirective]; ACTIONS 3 [sym_comment]; ACTIONS 9650 [sym_ppFragmentExpr];
   ACTIONS 9638 [sym__literalStringMultiline]; ACTIONS 9654 [sym_identifier];
   ACTIONS 9656 [sym_kSpecialize]; ACTIONS 9658 [sym_kAsm]; ACTIONS 9660 [sym_kBegin];
   ACTIONS 9662 [sym_kCase]; ACTIONS 9664 [sym_kConst]; ACTIONS 3304 [sym_kElse; sym_kEnd];
   ACTIONS 9666 [sym_kFor]; ACTIONS 9668 [sym_kFunction]; ACTIONS 9670 [sym_kGoto];
   ACTIONS 9672 [sym_kIf]; ACTIONS 9674 [sym_kInherited]; ACTIONS 9650 [sym_kNil];
   ACTIONS 9648 [sym_kNot]; ACTIONS 9668 [sym_kProcedure]; ACTIONS 9676 [sym_kRaise];
   ACTIONS 9678 [sym_kRepeat]; ACTIONS 9680 [sym_kString]; ACTIONS 9682 [sym_kTry];
   ACTIONS 9684 [sym_kVar]; ACTIONS 9686 [sym_kWhile]; ACTIONS 9688 [sym_kWith]].

(** State 1029. *)
Definition ts_parse_table_1029 : parse_row :=
  [STATE 9071 [sym_if]; STATE 9195 [sym_ifElse; sym_while; sym_repeat; sym_for; sym_foreach;
   sym_try; sym_case; sym_block; sym_asm; sym_with; sym_raise; sym_statement; sym_goto;
   sym__statement]; STATE 12652 [sym_ifTr; sym_ifElseTr; sym_whileTr; sym_repeatTr; sym_forTr;
   sym_foreachTr; sym_tryTr; sym_caseTr]; STATE 12901 [sym_blockTr]; STATE 12652 [sym_asmTr;
   sym_withTr; sym_raiseTr; sym_statementTr; sym_gotoTr; sym__statementTr];
   STATE 12334 [sym_assignment]; STATE 11914 [sym_varAssignDef]; STATE 12334 [sym_varDef;
   sym_constDef]; STATE 966 [sym_label]; STATE 7768 [sym__expr; sym_exprConditional];
   STATE 7138 [sym__ref; sym_lambda; sym_inherited; sym_exprDot; sym_exprDeref; sym_exprAs;
   sym_exprTpl; sym_exprSubscript; sym_exprCall]; STATE 7768 [sym_exprBinary; sym_exprUnary];
   STATE 7138 [sym_exprParens; sym_exprBrackets; sym__literal; sym_literalString];
   STATE 6388 [sym__literalString; sym_literalChar]; STATE 7138 [sym_literalNumber];
   STATE 7299 [sym__literalInt; sym__literalFloat]; STATE 966 [aux_sym_labeledStatement_repeat1];
   STATE 6388 [aux_sym_literalString_repeat1]; ACTIONS 9970 [anon_sym_SEMI];
   ACTIONS 7968 [anon_sym_LBRACK]; ACTIONS 7970 [anon_sym_LPAREN];
   ACTIONS 7972 [aux_sym__literalString_token1]; ACTIONS 7974 [anon_sym_POUND];
   ACTIONS 7976 [aux_sym__literalInt_token1]; ACTIONS 7978 [aux_sym__literalInt_token2;
   aux_sym__literalInt_token3]; ACTIONS 7976 [aux_sym__literalFloat_token1];
   ACTIONS 7980 [sym_kAdd; sym_kSub]; ACTIONS 7982 [sym_kAt]; ACTIONS 7984 [sym_kTrue;
   sym_kFalse]; ACTIONS 7986 [sym_labelNumber]; ACTIONS 3 [sym__space];
   ACTIONS 5 [sym_ppDirective]; ACTIONS 3 [sym_comment]; ACTIONS 7984 [sym_ppFragmentExpr];
   ACTIONS 7972 [sym__literalStringMultiline]; ACTIONS 7988 [sym_identifier];
   ACTIONS 7990 [sym_kSpecialize]; ACTIONS 4301 [sym_kOtherwise]; ACTIONS 7994 [sym_kAsm];
   ACTIONS 7996 [sym_kBegin]; ACTIONS 7998 [sym_kCase]; ACTIONS 8000 [sym_kConst];
   ACTIONS 4301 [sym_kElse; sym_kEnd]; ACTIONS 8002 [sym_kFor]; ACTIONS 8004 [sym_kFunction];
   ACTIONS 8006 [sym_kGoto]; ACTIONS 8008 [sym_kIf]; ACTIONS 8010 [sym_kInherited];
   ACTIONS 7984 [sym_kNil]; ACTIONS 7982 [sym_kNot]; ACTIONS 8004 [sym_kProcedure];
   ACTIONS 8012 [sym_kRaise]; ACTIONS 8014 [sym_kRepeat]; ACTIONS 8016 [sym_kString];
   ACTIONS 8018 [sym_kTry]; ACTIONS 8020 [sym_kVar]; ACTIONS 8022 [sym_kWhile];
   ACTIONS 8024 [sym_kWith]].

(** State 1030. *)
Definition ts_parse_table_1030 : parse_row :=
  [STATE 6213 [sym_if]; STATE 6199 [sym_ifElse; sym_while; sym_repeat; sym_for; sym_foreach;
   sym_try; sym_case; sym_block; sym_asm; sym_with; sym_raise; sym_statement; sym_goto];
   STATE 6196 [sym_labeledStatement]; STATE 6199 [sym__statement]; STATE 13031 [sym_ifTr;
   sym_ifElseTr; sym_whileTr; sym_repeatTr; sym_forTr; sym_foreachTr; sym_tryTr; sym_caseTr];
   STATE 13296 [sym_blockTr]; STATE 13031 [sym_asmTr; sym_withTr; sym_raiseTr; sym_statementTr;
   sym_gotoTr]; STATE 13029 [sym_labeledStatementTr]; STATE 13031 [sym__statementTr];
   STATE 12751 [sym_assignment]; STATE 11883 [sym_varAssignDef]; STATE 12751 [sym_varDef;
   sym_constDef]; STATE 1133 [sym_label]; STATE 7864 [sym__expr; sym_exprConditional];
   STATE 7341 [sym__ref; sym_lambda; sym_inherited; sym_exprDot; sym_exprDeref; sym_exprAs;
   sym_exprTpl; sym_exprSubscript; sym_exprCall]; STATE 7864 [sym_exprBinary; sym_exprUnary];
   STATE 7341 [sym_exprParens; sym_exprBrackets; sym__literal; sym_literalString];
   STATE 6534 [sym__literalString; sym_literalChar]; STATE 7341 [sym_literalNumber];
   STATE 7552 [sym__literalInt; sym__literalFloat]; STATE 6534 [aux_sym_literalString_repeat1];
   ACTIONS 9972 [anon_sym_SEMI]; ACTIONS 9634 [anon_sym_LBRACK]; ACTIONS 9636 [anon_sym_LPAREN];
   ACTIONS 9638 [aux_sym__literalString_token1]; ACTIONS 9640 [anon_sym_POUND];
   ACTIONS 9642 [aux_sym__literalInt_token1]; ACTIONS 9644 [aux_sym__literalInt_token2;
   aux_sym__literalInt_token3]; ACTIONS 9642 [aux_sym__literalFloat_token1];
   ACTIONS 9646 [sym_kAdd; sym_kSub]; ACTIONS 9648 [sym_kAt]; ACTIONS 9650 [sym_kTrue;
   sym_kFalse]; ACTIONS 9652 [sym_labelNumber]; ACTIONS 3 [sym__space];
   ACTIONS 5 [sym_ppDirective]; ACTIONS 3 [sym_comment]; ACTIONS 9650 [sym_ppFragmentExpr];
   ACTIONS 9638 [sym__literalStringMultiline]; ACTIONS 9654 [sym_identifier];
   ACTIONS 9656 [sym_kSpecialize]; ACTIONS 9692 [sym_kAsm]; ACTIONS 9694 [sym_kBegin];
   ACTIONS 9696 [sym_kCase]; ACTIONS 9664 [sym_kConst]; ACTIONS 3286 [sym_kElse; sym_kEnd];
   ACTIONS 9698 [sym_kFor]; ACTIONS 9668 [sym_kFunction]; ACTIONS 9700 [sym_kGoto];
   ACTIONS 9702 [sym_kIf]; ACTIONS 9674 [sym_kInherited]; ACTIONS 9650 [sym_kNil];
   ACTIONS 9648 [sym_kNot]; ACTIONS 9668 [sym_kProcedure]; ACTIONS 9704 [sym_kRaise];
   ACTIONS 9706 [sym_kRepeat]; ACTIONS 9680 [sym_kString]; ACTIONS 9708 [sym_kTry];
   ACTIONS 9684 [sym_kVar]; ACTIONS 9710 [sym_kWhile]; ACTIONS 9712 [sym_kWith]].

(** State 1031. *)
Definition ts_parse_table_1031 : parse_row :=
  [STATE 6132 [sym_if]; STATE 6340 [sym_ifElse; sym_while; sym_repeat; sym_for; sym_foreach;
   sym_try; sym_case; sym_block; sym_asm; sym_with; sym_raise; sym_statement; sym_goto;
   sym_labeledStatement; sym__statement]; STATE 12994 [sym_ifTr; sym_ifElseTr; sym_whileTr;
   sym_repeatTr; sym_forTr; sym_foreachTr; sym_tryTr; sym_caseTr]; STATE 13195 [sym_blockTr];
   STATE 12994 [sym_asmTr; sym_withTr; sym_raiseTr; sym_statementTr; sym_gotoTr;
   sym_labeledStatementTr; sym__statementTr]; STATE 12722 [sym_assignment];
   STATE 11921 [sym_varAssignDef]; STATE 12722 [sym_varDef; sym_constDef];
   STATE 1109 [sym_label]; STATE 7785 [sym__expr; sym_exprConditional]; STATE 7326 [sym__ref;
   sym_lambda; sym_inherited; sym_exprDot; sym_exprDeref; sym_exprAs; sym_exprTpl;
   sym_exprSubscript; sym_exprCall]; STATE 7785 [sym_exprBinary; sym_exprUnary];
   STATE 7326 [sym_exprParens; sym_exprBrackets; sym__literal; sym_literalString];
   STATE 6591 [sym__literalString; sym_literalChar]; STATE 7326 [sym_literalNumber];
   STATE 7474 [sym__literalInt; sym__literalFloat]; STATE 6591 [aux_sym_literalString_repeat1];
   ACTIONS 9956 [anon_sym_SEMI]; ACTIONS 9754 [anon_sym_LBRACK]; ACTIONS 9756 [anon_sym_LPAREN];
   ACTIONS 9758 [aux_sym__literalString_token1]; ACTIONS 9760 [anon_sym_POUND];
   ACTIONS 9762 [aux_sym__literalInt_token1]; ACTIONS 9764 [aux_sym__literalInt_token2;
   aux_sym__literalInt_token3]; ACTIONS 9762 [aux_sym__literalFloat_token1];
   ACTIONS 9766 [sym_kAdd; sym_kSub]; ACTIONS 9768 [sym_kAt]; ACTIONS 9770 [sym_kTrue;
   sym_kFalse]; ACTIONS 9772 [sym_labelNumber]; ACTIONS 3 [sym__space];
   ACTIONS 5 [sym_ppDirective]; ACTIONS 3 [sym_comment]; ACTIONS 9770 [sym_ppFragmentExpr];
   ACTIONS 9758 [sym__literalStringMultiline]; ACTIONS 9774 [sym_identifier];
   ACTIONS 9776 [sym_kSpecialize]; ACTIONS 9876 [sym_kAsm]; ACTIONS 9878 [sym_kBegin];
   ACTIONS 9880 [sym_kCase]; ACTIONS 9784 [sym_kConst]; ACTIONS 9828 [sym_kElse];
   ACTIONS 9882 [sym_kFor]; ACTIONS 9788 [sym_kFunction]; ACTIONS 9884 [sym_kGoto];
   ACTIONS 9960 [sym_kIf]; ACTIONS 9794 [sym_kInherited]; ACTIONS 9770 [sym_kNil];
   ACTIONS 9768 [sym_kNot]; ACTIONS 9788 [sym_kProcedure]; ACTIONS 9888 [sym_kRaise];
   ACTIONS 9890 [sym_kRepeat]; ACTIONS 9800 [sym_kString]; ACTIONS 9892 [sym_kTry];
   ACTIONS 3230 [sym_kUntil]; ACTIONS 9804 [sym_kVar]; ACTIONS 9894 [sym_kWhile];
   ACTIONS 9896 [sym_kWith]].

(** State 1032. *)
Definition ts_parse_table_1032 : parse_row :=
  [ACTIONS 9974 [anon_sym_SEMI; anon_sym_COMMA; anon_sym_LBRACK]; ACTIONS 9976 [anon_sym_LPAREN];
   ACTIONS 9974 [aux_sym__literalString_token1; anon_sym_POUND];
   ACTIONS 9976 [aux_sym__literalInt_token1]; ACTIONS 9974 [aux_sym__literalInt_token2;
   aux_sym__literalInt_token3]; ACTIONS 9976 [aux_sym__literalFloat_token1];
   ACTIONS 9974 [aux_sym_ppUsesBlock_token1; aux_sym_ppUsesBlock_token2;
   aux_sym_ppUsesBlock_token3]; ACTIONS 9976 [sym_kAdd; sym_kSub]; ACTIONS 9974 [sym_kAt;
   sym_kTrue; sym_kFalse]; ACTIONS 3 [sym__space]; ACTIONS 5 [sym_ppDirective];
   ACTIONS 3 [sym_comment]; ACTIONS 9974 [sym_ppFragmentExpr; sym__literalStringMultiline;
   sym_identifier; sym_kDefault; sym_kNodefault; sym_kDispId; sym_kGeneric; sym_kSpecialize;
   sym_kOperator; sym_kPublic; sym_kForward; sym_kStatic; sym_kVirtual; sym_kAbstract;
   sym_kDynamic; sym_kOverride; sym_kOverload; sym_kReintroduce; sym_kStdcall; sym_kCdecl;
   sym_kCppdecl; sym_kPascal; sym_kRegister; sym_kMwpascal; sym_kExternal; sym_kMessage;
   sym_kDeprecated; sym_kExperimental; sym_kPlatform; sym_kUnimplemented; sym_kCvar; sym_kExport;
   sym_kFar; sym_kNear; sym_kSafecall; sym_kAssembler; sym_kNostackframe; sym_kInterrupt;
   sym_kNoreturn; sym_kIocheck; sym_kLocal; sym_kHardfloat; sym_kSoftfloat; sym_kMs_abi_default;
   sym_kMs_abi_cdecl; sym_kSaveregisters; sym_kSysv_abi_default; sym_kSysv_abi_cdecl;
   sym_kVectorcall; sym_kVarargs; sym_kWinapi; sym_kAlias; sym_kAsm; sym_kBegin; sym_kCase;
   sym_kClass; sym_kConst; sym_kConstructor; sym_kDestructor; sym_kExports; sym_kFor;
   sym_kFunction; sym_kGoto; sym_kIf; sym_kInherited; sym_kInline; sym_kLabel; sym_kNil;
   sym_kNot; sym_kProcedure; sym_kProperty; sym_kRaise; sym_kRepeat; sym_kResourcestring;
   sym_kString; sym_kThreadvar; sym_kTry; sym_kType; sym_kUses; sym_kVar; sym_kWhile; sym_kWith]].

(** State 1033. *)
Definition ts_parse_table_1033 : parse_row :=
  [STATE 6213 [sym_if]; STATE 6186 [sym_ifElse; sym_while; sym_repeat; sym_for; sym_foreach;
   sym_try; sym_case; sym_block; sym_asm; sym_with; sym_raise; sym_statement; sym_goto;
   sym_labeledStatement; sym__statement]; STATE 13197 [sym_ifTr; sym_ifElseTr; sym_whileTr;
   sym_repeatTr; sym_forTr; sym_foreachTr; sym_tryTr; sym_caseTr]; STATE 13296 [sym_blockTr];
   STATE 13197 [sym_asmTr; sym_withTr; sym_raiseTr; sym_statementTr; sym_gotoTr;
   sym_labeledStatementTr; sym__statementTr]; STATE 12751 [sym_assignment];
   STATE 11883 [sym_varAssignDef]; STATE 12751 [sym_varDef; sym_constDef];
   STATE 1133 [sym_label]; STATE 7864 [sym__expr; sym_exprConditional]; STATE 7341 [sym__ref;
   sym_lambda; sym_inherited; sym_exprDot; sym_exprDeref; sym_exprAs; sym_exprTpl;
   sym_exprSubscript; sym_exprCall]; STATE 7864 [sym_exprBinary; sym_exprUnary];
   STATE 7341 [sym_exprParens; sym_exprBrackets; sym__literal; sym_literalString];
   STATE 6534 [sym__literalString; sym_literalChar]; STATE 7341 [sym_literalNumber];
   STATE 7552 [sym__literalInt; sym__literalFloat]; STATE 6534 [aux_sym_literalString_repeat1];
   ACTIONS 9978 [anon_sym_SEMI]; ACTIONS 9634 [anon_sym_LBRACK]; ACTIONS 9636 [anon_sym_LPAREN];
   ACTIONS 9638 [aux_sym__literalString_token1]; ACTIONS 9640 [anon_sym_POUND];
   ACTIONS 9642 [aux_sym__literalInt_token1]; ACTIONS 9644 [aux_sym__literalInt_token2;
   aux_sym__literalInt_token3]; ACTIONS 9642 [aux_sym__literalFloat_token1];
   ACTIONS 9646 [sym_kAdd; sym_kSub]; ACTIONS 9648 [sym_kAt]; ACTIONS 9650 [sym_kTrue;
   sym_kFalse]; ACTIONS 9652 [sym_labelNumber]; ACTIONS 3 [sym__space];
   ACTIONS 5 [sym_ppDirective]; ACTIONS 3 [sym_comment]; ACTIONS 9650 [sym_ppFragmentExpr];
   ACTIONS 9638 [sym__literalStringMultiline]; ACTIONS 9654 [sym_identifier];
   ACTIONS 9656 [sym_kSpecialize]; ACTIONS 9692 [sym_kAsm]; ACTIONS 9694 [sym_kBegin];
   ACTIONS 9696 [sym_kCase]; ACTIONS 9664 [sym_kConst]; ACTIONS 3290 [sym_kElse; sym_kEnd];
   ACTIONS 9698 [sym_kFor]; ACTIONS 9668 [sym_kFunction]; ACTIONS 9700 [sym_kGoto];
   ACTIONS 9702 [sym_kIf]; ACTIONS 9674 [sym_kInherited]; ACTIONS 9650 [sym_kNil];
   ACTIONS 9648 [sym_kNot]; ACTIONS 9668 [sym_kProcedure]; ACTIONS 9704 [sym_kRaise];
   ACTIONS 9706 [sym_kRepeat]; ACTIONS 9680 [sym_kString]; ACTIONS 9708 [sym_kTry];
   ACTIONS 9684 [sym_kVar]; ACTIONS 9710 [sym_kWhile]; ACTIONS 9712 [sym_kWith]].

(** State 1034. *)
Definition ts_parse_table_1034 : parse_row :=
  [STATE 6213 [sym_if]; STATE 6203 [sym_ifElse; sym_while; sym_repeat; sym_for; sym_foreach;
   sym_try; sym_case; sym_block; sym_asm; sym_with; sym_raise; sym_statement; sym_goto;
   sym_labeledStatement; sym__statement]; STATE 13198 [sym_ifTr; sym_ifElseTr; sym_whileTr;
   sym_repeatTr; sym_forTr; sym_foreachTr; sym_tryTr; sym_caseTr]; STATE 13296 [sym_blockTr];
   STATE 13198 [sym_asmTr; sym_withTr; sym_raiseTr; sym_statementTr; sym_gotoTr;
   sym_labeledStatementTr; sym__statementTr]; STATE 12751 [sym_assignment];
   STATE 11883 [sym_varAssignDef]; STATE 12751 [sym_varDef; sym_constDef];
   STATE 1133 [sym_label]; STATE 7864 [sym__expr; sym_exprConditional]; STATE 7341 [sym__ref;
   sym_lambda; sym_inherited; sym_exprDot; sym_exprDeref; sym_exprAs; sym_exprTpl;
   sym_exprSubscript; sym_exprCall]; STATE 7864 [sym_exprBinary; sym_exprUnary];
   STATE 7341 [sym_exprParens; sym_exprBrackets; sym__literal; sym_literalString];
   STATE 6534 [sym__literalString; sym_literalChar]; STATE 7341 [sym_literalNumber];
   STATE 7552 [sym__literalInt; sym__literalFloat]; STATE 6534 [aux_sym_literalString_repeat1];
   ACTIONS 9980 [anon_sym_SEMI]; ACTIONS 9634 [anon_sym_LBRACK]; ACTIONS 9636 [anon_sym_LPAREN];
   ACTIONS 9638 [aux_sym__literalString_token1]; ACTIONS 9640 [anon_sym_POUND];
   ACTIONS 9642 [aux_sym__literalInt_token1]; ACTIONS 9644 [aux_sym__literalInt_token2;
   aux_sym__literalInt_token3]; ACTIONS 9642 [aux_sym__literalFloat_token1];
   ACTIONS 9646 [sym_kAdd; sym_kSub]; ACTIONS 9648 [sym_kAt]; ACTIONS 9650 [sym_kTrue;
   sym_kFalse]; ACTIONS 9652 [sym_labelNumber]; ACTIONS 3 [sym__space];
   ACTIONS 5 [sym_ppDirective]; ACTIONS 3 [sym_comment]; ACTIONS 9650 [sym_ppFragmentExpr];
   ACTIONS 9638 [sym__literalStringMultiline]; ACTIONS 9654 [sym_identifier];
   ACTIONS 9656 [sym_kSpecialize]; ACTIONS 9692 [sym_kAsm]; ACTIONS 9694 [sym_kBegin];
   ACTIONS 9696 [sym_kCase]; ACTIONS 9664 [sym_kConst]; ACTIONS 3296 [sym_kElse; sym_kEnd];
   ACTIONS 9698 [sym_kFor]; ACTIONS 9668 [sym_kFunction]; ACTIONS 9700 [sym_kGoto];
   ACTIONS 9702 [sym_kIf]; ACTIONS 9674 [sym_kInherited]; ACTIONS 9650 [sym_kNil];
   ACTIONS 9648 [sym_kNot]; ACTIONS 9668 [sym_kProcedure]; ACTIONS 9704 [sym_kRaise];
   ACTIONS 9706 [sym_kRepeat]; ACTIONS 9680 [sym_kString]; ACTIONS 9708 [sym_kTry];
   ACTIONS 9684 [sym_kVar]; ACTIONS 9710 [sym_kWhile]; ACTIONS 9712 [sym_kWith]].

(** State 1035. *)
Definition ts_parse_table_1035 : parse_row :=
  [STATE 6273 [sym_if]; STATE 6151 [sym_ifElse; sym_while; sym_repeat; sym_for; sym_foreach;
   sym_try; sym_case; sym_block; sym_asm; sym_with; sym_raise; sym_statement; sym_goto;
   sym_labeledStatement; sym__statement]; STATE 13297 [sym_ifTr; sym_ifElseTr; sym_whileTr;
   sym_repeatTr; sym_forTr; sym_foreachTr; sym_tryTr; sym_caseTr]; STATE 13195 [sym_blockTr];
   STATE 13297 [sym_asmTr; sym_withTr; sym_raiseTr; sym_statementTr; sym_gotoTr;
   sym_labeledStatementTr; sym__statementTr]; STATE 12722 [sym_assignment];
   STATE 11921 [sym_varAssignDef]; STATE 12722 [sym_varDef; sym_constDef];
   STATE 1109 [sym_label]; STATE 7889 [sym__expr; sym_exprConditional]; STATE 7326 [sym__ref;
   sym_lambda; sym_inherited; sym_exprDot; sym_exprDeref; sym_exprAs; sym_exprTpl;
   sym_exprSubscript; sym_exprCall]; STATE 7889 [sym_exprBinary; sym_exprUnary];
   STATE 7326 [sym_exprParens; sym_exprBrackets; sym__literal; sym_literalString];
   STATE 6591 [sym__literalString; sym_literalChar]; STATE 7326 [sym_literalNumber];
   STATE 7474 [sym__literalInt; sym__literalFloat]; STATE 6591 [aux_sym_literalString_repeat1];
   ACTIONS 9982 [anon_sym_SEMI]; ACTIONS 9754 [anon_sym_LBRACK]; ACTIONS 9756 [anon_sym_LPAREN];
   ACTIONS 9758 [aux_sym__literalString_token1]; ACTIONS 9760 [anon_sym_POUND];
   ACTIONS 9762 [aux_sym__literalInt_token1]; ACTIONS 9764 [aux_sym__literalInt_token2;
   aux_sym__literalInt_token3]; ACTIONS 9762 [aux_sym__literalFloat_token1];
   ACTIONS 9766 [sym_kAdd; sym_kSub]; ACTIONS 9768 [sym_kAt]; ACTIONS 9770 [sym_kTrue;
   sym_kFalse]; ACTIONS 9772 [sym_labelNumber]; ACTIONS 3 [sym__space];
   ACTIONS 5 [sym_ppDirective]; ACTIONS 3 [sym_comment]; ACTIONS 9770 [sym_ppFragmentExpr];
   ACTIONS 9758 [sym__literalStringMultiline]; ACTIONS 9774 [sym_identifier];
   ACTIONS 9776 [sym_kSpecialize]; ACTIONS 9876 [sym_kAsm]; ACTIONS 9878 [sym_kBegin];
   ACTIONS 9880 [sym_kCase]; ACTIONS 9784 [sym_kConst]; ACTIONS 3282 [sym_kElse];
   ACTIONS 9882 [sym_kFor]; ACTIONS 9788 [sym_kFunction]; ACTIONS 9884 [sym_kGoto];
   ACTIONS 9886 [sym_kIf]; ACTIONS 9794 [sym_kInherited]; ACTIONS 9770 [sym_kNil];
   ACTIONS 9768 [sym_kNot]; ACTIONS 9788 [sym_kProcedure]; ACTIONS 9888 [sym_kRaise];
   ACTIONS 9890 [sym_kRepeat]; ACTIONS 9800 [sym_kString]; ACTIONS 9892 [sym_kTry];
   ACTIONS 3282 [sym_kUntil]; ACTIONS 9804 [sym_kVar]; ACTIONS 9894 [sym_kWhile];
   ACTIONS 9896 [sym_kWith]].

(** State 1036. *)
Definition ts_parse_table_1036 : parse_row :=
  [STATE 6451 [sym_if]; STATE 6356 [sym_ifElse; sym_while; sym_repeat; sym_for; sym_foreach;
   sym_try; sym_case; sym_block; sym_asm; sym_with; sym_raise; sym_statement; sym_goto;
   sym_labeledStatement; sym__statement]; STATE 15171 [sym_ifTr; sym_ifElseTr; sym_whileTr;
   sym_repeatTr; sym_forTr; sym_foreachTr; sym_tryTr; sym_caseTr]; STATE 15738 [sym_blockTr];
   STATE 15171 [sym_asmTr; sym_withTr; sym_raiseTr; sym_statementTr; sym_gotoTr;
   sym_labeledStatementTr; sym__statementTr]; STATE 13614 [sym_assignment];
   STATE 11905 [sym_varAssignDef]; STATE 13614 [sym_varDef; sym_constDef];
   STATE 1280 [sym_label]; STATE 8032 [sym__expr; sym_exprConditional]; STATE 7363 [sym__ref;
   sym_lambda; sym_inherited; sym_exprDot; sym_exprDeref; sym_exprAs; sym_exprTpl;
   sym_exprSubscript; sym_exprCall]; STATE 8032 [sym_exprBinary; sym_exprUnary];
   STATE 7363 [sym_exprParens; sym_exprBrackets; sym__literal; sym_literalString];
   STATE 6967 [sym__literalString; sym_literalChar]; STATE 7363 [sym_literalNumber];
   STATE 7660 [sym__literalInt; sym__literalFloat]; STATE 6967 [aux_sym_literalString_repeat1];
   ACTIONS 9984 [anon_sym_SEMI]; ACTIONS 9986 [anon_sym_LBRACK]; ACTIONS 9988 [anon_sym_LPAREN];
   ACTIONS 9990 [aux_sym__literalString_token1]; ACTIONS 9992 [anon_sym_POUND];
   ACTIONS 9994 [aux_sym__literalInt_token1]; ACTIONS 9996 [aux_sym__literalInt_token2;
   aux_sym__literalInt_token3]; ACTIONS 9994 [aux_sym__literalFloat_token1];
   ACTIONS 9998 [sym_kAdd; sym_kSub]; ACTIONS 10000 [sym_kAt]; ACTIONS 10002 [sym_kTrue;
   sym_kFalse]; ACTIONS 10004 [sym_labelNumber]; ACTIONS 3 [sym__space];
   ACTIONS 5 [sym_ppDirective]; ACTIONS 3 [sym_comment]; ACTIONS 10002 [sym_ppFragmentExpr];
   ACTIONS 9990 [sym__literalStringMultiline]; ACTIONS 10006 [sym_identifier];
   ACTIONS 10008 [sym_kSpecialize]; ACTIONS 10010 [sym_kAsm]; ACTIONS 10012 [sym_kBegin];
   ACTIONS 10014 [sym_kCase]; ACTIONS 10016 [sym_kConst]; ACTIONS 3282 [sym_kElse];
   ACTIONS 10018 [sym_kFor]; ACTIONS 10020 [sym_kFunction]; ACTIONS 10022 [sym_kGoto];
   ACTIONS 10024 [sym_kIf]; ACTIONS 10026 [sym_kInherited]; ACTIONS 10002 [sym_kNil];
   ACTIONS 10000 [sym_kNot]; ACTIONS 10020 [sym_kProcedure]; ACTIONS 10028 [sym_kRaise];
   ACTIONS 10030 [sym_kRepeat]; ACTIONS 10032 [sym_kString]; ACTIONS 10034 [sym_kTry];
   ACTIONS 10036 [sym_kVar]; ACTIONS 10038 [sym_kWhile]; ACTIONS 10040 [sym_kWith]].

(** State 1037. *)
Definition ts_parse_table_1037 : parse_row :=
  [STATE 6747 [sym_if]; STATE 6799 [sym_ifElse; sym_while; sym_repeat; sym_for; sym_foreach;
   sym_try; sym_case; sym_block; sym_asm; sym_with; sym_raise; sym_statement; sym_goto;
   sym_labeledStatement; sym__statement]; STATE 15995 [sym_ifTr; sym_ifElseTr; sym_whileTr;
   sym_repeatTr; sym_forTr; sym_foreachTr; sym_tryTr; sym_caseTr]; STATE 15738 [sym_blockTr];
   STATE 15995 [sym_asmTr; sym_withTr; sym_raiseTr; sym_statementTr; sym_gotoTr;
   sym_labeledStatementTr; sym__statementTr]; STATE 13971 [sym_assignment];
   STATE 11905 [sym_varAssignDef]; STATE 13971 [sym_varDef; sym_constDef];
   STATE 1230 [sym_label]; STATE 8140 [sym__expr; sym_exprConditional]; STATE 7363 [sym__ref;
   sym_lambda; sym_inherited; sym_exprDot; sym_exprDeref; sym_exprAs; sym_exprTpl;
   sym_exprSubscript; sym_exprCall]; STATE 8140 [sym_exprBinary; sym_exprUnary];
   STATE 7363 [sym_exprParens; sym_exprBrackets; sym__literal; sym_literalString];
   STATE 6967 [sym__literalString; sym_literalChar]; STATE 7363 [sym_literalNumber];
   STATE 7660 [sym__literalInt; sym__literalFloat]; STATE 6967 [aux_sym_literalString_repeat1];
   ACTIONS 10042 [anon_sym_SEMI]; ACTIONS 9986 [anon_sym_LBRACK]; ACTIONS 9988 [anon_sym_LPAREN];
   ACTIONS 9990 [aux_sym__literalString_token1]; ACTIONS 9992 [anon_sym_POUND];
   ACTIONS 9994 [aux_sym__literalInt_token1]; ACTIONS 9996 [aux_sym__literalInt_token2;
   aux_sym__literalInt_token3]; ACTIONS 9994 [aux_sym__literalFloat_token1];
   ACTIONS 9998 [sym_kAdd; sym_kSub]; ACTIONS 10000 [sym_kAt]; ACTIONS 10002 [sym_kTrue;
   sym_kFalse]; ACTIONS 10004 [sym_labelNumber]; ACTIONS 3 [sym__space];
   ACTIONS 5 [sym_ppDirective]; ACTIONS 3 [sym_comment]; ACTIONS 10002 [sym_ppFragmentExpr];
   ACTIONS 9990 [sym__literalStringMultiline]; ACTIONS 10006 [sym_identifier];
   ACTIONS 10008 [sym_kSpecialize]; ACTIONS 10044 [sym_kAsm]; ACTIONS 10046 [sym_kBegin];
   ACTIONS 10048 [sym_kCase]; ACTIONS 10016 [sym_kConst]; ACTIONS 3304 [sym_kElse];
   ACTIONS 10050 [sym_kFor]; ACTIONS 10020 [sym_kFunction]; ACTIONS 10052 [sym_kGoto];
   ACTIONS 10054 [sym_kIf]; ACTIONS 10026 [sym_kInherited]; ACTIONS 10002 [sym_kNil];
   ACTIONS 10000 [sym_kNot]; ACTIONS 10020 [sym_kProcedure]; ACTIONS 10056 [sym_kRaise];
   ACTIONS 10058 [sym_kRepeat]; ACTIONS 10032 [sym_kString]; ACTIONS 10060 [sym_kTry];
   ACTIONS 10036 [sym_kVar]; ACTIONS 10062 [sym_kWhile]; ACTIONS 10064 [sym_kWith]].

(** State 1038. *)
Definition ts_parse_table_1038 : parse_row :=
  [STATE 6463 [sym_if]; STATE 6517 [sym_ifElse; sym_while; sym_repeat; sym_for; sym_foreach;
   sym_try; sym_case; sym_block; sym_asm; sym_with; sym_raise; sym_statement; sym_goto;
   sym_labeledStatement; sym__statement]; STATE 15916 [sym_ifTr; sym_ifElseTr; sym_whileTr;
   sym_repeatTr; sym_forTr; sym_foreachTr; sym_tryTr; sym_caseTr]; STATE 15738 [sym_blockTr];
   STATE 15916 [sym_asmTr; sym_withTr; sym_raiseTr; sym_statementTr; sym_gotoTr;
   sym_labeledStatementTr; sym__statementTr]; STATE 14065 [sym_assignment];
   STATE 11905 [sym_varAssignDef]; STATE 14065 [sym_varDef; sym_constDef];
   STATE 1211 [sym_label]; STATE 8094 [sym__expr; sym_exprConditional]; STATE 7363 [sym__ref;
   sym_lambda; sym_inherited; sym_exprDot; sym_exprDeref; sym_exprAs; sym_exprTpl;
   sym_exprSubscript; sym_exprCall]; STATE 8094 [sym_exprBinary; sym_exprUnary];
   STATE 7363 [sym_exprParens; sym_exprBrackets; sym__literal; sym_literalString];
   STATE 6967 [sym__literalString; sym_literalChar]; STATE 7363 [sym_literalNumber];
   STATE 7660 [sym__literalInt; sym__literalFloat]; STATE 6967 [aux_sym_literalString_repeat1];
   ACTIONS 10066 [anon_sym_SEMI]; ACTIONS 9986 [anon_sym_LBRACK]; ACTIONS 9988 [anon_sym_LPAREN];
   ACTIONS 9990 [aux_sym__literalString_token1]; ACTIONS 9992 [anon_sym_POUND];
   ACTIONS 9994 [aux_sym__literalInt_token1]; ACTIONS 9996 [aux_sym__literalInt_token2;
   aux_sym__literalInt_token3]; ACTIONS 9994 [aux_sym__literalFloat_token1];
   ACTIONS 9998 [sym_kAdd; sym_kSub]; ACTIONS 10000 [sym_kAt]; ACTIONS 10002 [sym_kTrue;
   sym_kFalse]; ACTIONS 10004 [sym_labelNumber]; ACTIONS 3 [sym__space];
   ACTIONS 5 [sym_ppDirective]; ACTIONS 3 [sym_comment]; ACTIONS 10002 [sym_ppFragmentExpr];
   ACTIONS 9990 [sym__literalStringMultiline]; ACTIONS 10006 [sym_identifier];
   ACTIONS 10008 [sym_kSpecialize]; ACTIONS 10068 [sym_kAsm]; ACTIONS 10070 [sym_kBegin];
   ACTIONS 10072 [sym_kCase]; ACTIONS 10016 [sym_kConst]; ACTIONS 3278 [sym_kElse];
   ACTIONS 10074 [sym_kFor]; ACTIONS 10020 [sym_kFunction]; ACTIONS 10076 [sym_kGoto];
   ACTIONS 10078 [sym_kIf]; ACTIONS 10026 [sym_kInherited]; ACTIONS 10002 [sym_kNil];
   ACTIONS 10000 [sym_kNot]; ACTIONS 10020 [sym_kProcedure]; ACTIONS 10080 [sym_kRaise];
   ACTIONS 10082 [sym_kRepeat]; ACTIONS 10032 [sym_kString]; ACTIONS 10084 [sym_kTry];
   ACTIONS 10036 [sym_kVar]; ACTIONS 10086 [sym_kWhile]; ACTIONS 10088 [sym_kWith]].

(** State 1039. *)
Definition ts_parse_table_1039 : parse_row :=
  [STATE 6412 [sym_if]; STATE 6604 [sym_ifElse; sym_while; sym_repeat; sym_for; sym_foreach;
   sym_try; sym_case; sym_block; sym_asm; sym_with; sym_raise; sym_statement; sym_goto;
   sym_labeledStatement; sym__statement]; STATE 14711 [sym_ifTr; sym_ifElseTr; sym_whileTr;
   sym_repeatTr; sym_forTr; sym_foreachTr; sym_tryTr; sym_caseTr]; STATE 15738 [sym_blockTr];
   STATE 14711 [sym_asmTr; sym_withTr; sym_raiseTr; sym_statementTr; sym_gotoTr;
   sym_labeledStatementTr; sym__statementTr]; STATE 14065 [sym_assignment];
   STATE 11905 [sym_varAssignDef]; STATE 14065 [sym_varDef; sym_constDef];
   STATE 1211 [sym_label]; STATE 8044 [sym__expr; sym_exprConditional]; STATE 7363 [sym__ref;
   sym_lambda; sym_inherited; sym_exprDot; sym_exprDeref; sym_exprAs; sym_exprTpl;
   sym_exprSubscript; sym_exprCall]; STATE 8044 [sym_exprBinary; sym_exprUnary];
   STATE 7363 [sym_exprParens; sym_exprBrackets; sym__literal; sym_literalString];
   STATE 6967 [sym__literalString; sym_literalChar]; STATE 7363 [sym_literalNumber];
   STATE 7660 [sym__literalInt; sym__literalFloat]; STATE 6967 [aux_sym_literalString_repeat1];
   ACTIONS 10090 [anon_sym_SEMI]; ACTIONS 9986 [anon_sym_LBRACK]; ACTIONS 9988 [anon_sym_LPAREN];
   ACTIONS 9990 [aux_sym__literalString_token1]; ACTIONS 9992 [anon_sym_POUND];
   ACTIONS 9994 [aux_sym__literalInt_token1]; ACTIONS 9996 [aux_sym__literalInt_token2;
   aux_sym__literalInt_token3]; ACTIONS 9994 [aux_sym__literalFloat_token1];
   ACTIONS 9998 [sym_kAdd; sym_kSub]; ACTIONS 10000 [sym_kAt]; ACTIONS 10002 [sym_kTrue;
   sym_kFalse]; ACTIONS 10004 [sym_labelNumber]; ACTIONS 3 [sym__space];
   ACTIONS 5 [sym_ppDirective]; ACTIONS 3 [sym_comment]; ACTIONS 10002 [sym_ppFragmentExpr];
   ACTIONS 9990 [sym__literalStringMultiline]; ACTIONS 10006 [sym_identifier];
   ACTIONS 10008 [sym_kSpecialize]; ACTIONS 10068 [sym_kAsm]; ACTIONS 10070 [sym_kBegin];
   ACTIONS 10072 [sym_kCase]; ACTIONS 10016 [sym_kConst]; ACTIONS 10092 [sym_kElse];
   ACTIONS 10074 [sym_kFor]; ACTIONS 10020 [sym_kFunction]; ACTIONS 10076 [sym_kGoto];
   ACTIONS 10094 [sym_kIf]; ACTIONS 10026 [sym_kInherited]; ACTIONS 10002 [sym_kNil];
   ACTIONS 10000 [sym_kNot]; ACTIONS 10020 [sym_kProcedure]; ACTIONS 10080 [sym_kRaise];
   ACTIONS 10082 [sym_kRepeat]; ACTIONS 10032 [sym_kString]; ACTIONS 10084 [sym_kTry];
   ACTIONS 10036 [sym_kVar]; ACTIONS 10086 [sym_kWhile]; ACTIONS 10088 [sym_kWith]].

(** State 1040. *)
Definition ts_parse_table_1040 : parse_row :=
  [STATE 6463 [sym_if]; STATE 6553 [sym_ifElse; sym_while; sym_repeat; sym_for; sym_foreach;
   sym_try; sym_case; sym_block; sym_asm; sym_with; sym_raise; sym_statement; sym_goto;
   sym_labeledStatement; sym__statement]; STATE 15171 [sym_ifTr; sym_ifElseTr; sym_whileTr;
   sym_repeatTr; sym_forTr; sym_foreachTr; sym_tryTr; sym_caseTr]; STATE 15738 [sym_blockTr];
   STATE 15171 [sym_asmTr; sym_withTr; sym_raiseTr; sym_statementTr; sym_gotoTr;
   sym_labeledStatementTr; sym__statementTr]; STATE 14065 [sym_assignment];
   STATE 11905 [sym_varAssignDef]; STATE 14065 [sym_varDef; sym_constDef];
   STATE 1211 [sym_label]; STATE 8094 [sym__expr; sym_exprConditional]; STATE 7363 [sym__ref;
   sym_lambda; sym_inherited; sym_exprDot; sym_exprDeref; sym_exprAs; sym_exprTpl;
   sym_exprSubscript; sym_exprCall]; STATE 8094 [sym_exprBinary; sym_exprUnary];
   STATE 7363 [sym_exprParens; sym_exprBrackets; sym__literal; sym_literalString];
   STATE 6967 [sym__literalString; sym_literalChar]; STATE 7363 [sym_literalNumber];
   STATE 7660 [sym__literalInt; sym__literalFloat]; STATE 6967 [aux_sym_literalString_repeat1];
   ACTIONS 10096 [anon_sym_SEMI]; ACTIONS 9986 [anon_sym_LBRACK]; ACTIONS 9988 [anon_sym_LPAREN];
   ACTIONS 9990 [aux_sym__literalString_token1]; ACTIONS 9992 [anon_sym_POUND];
   ACTIONS 9994 [aux_sym__literalInt_token1]; ACTIONS 9996 [aux_sym__literalInt_token2;
   aux_sym__literalInt_token3]; ACTIONS 9994 [aux_sym__literalFloat_token1];
   ACTIONS 9998 [sym_kAdd; sym_kSub]; ACTIONS 10000 [sym_kAt]; ACTIONS 10002 [sym_kTrue;
   sym_kFalse]; ACTIONS 10004 [sym_labelNumber]; ACTIONS 3 [sym__space];
   ACTIONS 5 [sym_ppDirective]; ACTIONS 3 [sym_comment]; ACTIONS 10002 [sym_ppFragmentExpr];
   ACTIONS 9990 [sym__literalStringMultiline]; ACTIONS 10006 [sym_identifier];
   ACTIONS 10008 [sym_kSpecialize]; ACTIONS 10068 [sym_kAsm]; ACTIONS 10070 [sym_kBegin];
   ACTIONS 10072 [sym_kCase]; ACTIONS 10016 [sym_kConst]; ACTIONS 3282 [sym_kElse];
   ACTIONS 10074 [sym_kFor]; ACTIONS 10020 [sym_kFunction]; ACTIONS 10076 [sym_kGoto];
   ACTIONS 10078 [sym_kIf]; ACTIONS 10026 [sym_kInherited]; ACTIONS 10002 [sym_kNil];
   ACTIONS 10000 [sym_kNot]; ACTIONS 10020 [sym_kProcedure]; ACTIONS 10080 [sym_kRaise];
   ACTIONS 10082 [sym_kRepeat]; ACTIONS 10032 [sym_kString]; ACTIONS 10084 [sym_kTry];
   ACTIONS 10036 [sym_kVar]; ACTIONS 10086 [sym_kWhile]; ACTIONS 10088 [sym_kWith]].

(** State 1041. *)
Definition ts_parse_table_1041 : parse_row :=
  [STATE 6213 [sym_if]; STATE 6218 [sym_ifElse; sym_while; sym_repeat; sym_for; sym_foreach;
   sym_try; sym_case; sym_block; sym_asm; sym_with; sym_raise; sym_statement; sym_goto;
   sym_labeledStatement; sym__statement]; STATE 14758 [sym_ifTr; sym_ifElseTr; sym_whileTr;
   sym_repeatTr; sym_forTr; sym_foreachTr; sym_tryTr; sym_caseTr]; STATE 14251 [sym_blockTr];
   STATE 14758 [sym_asmTr; sym_withTr; sym_raiseTr; sym_statementTr; sym_gotoTr;
   sym_labeledStatementTr; sym__statementTr]; STATE 13915 [sym_assignment];
   STATE 11785 [sym_varAssignDef]; STATE 13915 [sym_varDef; sym_constDef];
   STATE 1213 [sym_label]; STATE 8019 [sym__expr; sym_exprConditional]; STATE 7478 [sym__ref;
   sym_lambda; sym_inherited; sym_exprDot; sym_exprDeref; sym_exprAs; sym_exprTpl;
   sym_exprSubscript; sym_exprCall]; STATE 8019 [sym_exprBinary; sym_exprUnary];
   STATE 7478 [sym_exprParens; sym_exprBrackets; sym__literal; sym_literalString];
   STATE 6664 [sym__literalString; sym_literalChar]; STATE 7478 [sym_literalNumber];
   STATE 7742 [sym__literalInt; sym__literalFloat]; STATE 6664 [aux_sym_literalString_repeat1];
   ACTIONS 9916 [anon_sym_SEMI]; ACTIONS 399 [anon_sym_LBRACK]; ACTIONS 401 [anon_sym_LPAREN];
   ACTIONS 403 [aux_sym__literalString_token1]; ACTIONS 405 [anon_sym_POUND];
   ACTIONS 407 [aux_sym__literalInt_token1]; ACTIONS 409 [aux_sym__literalInt_token2;
   aux_sym__literalInt_token3]; ACTIONS 407 [aux_sym__literalFloat_token1];
   ACTIONS 413 [sym_kAdd; sym_kSub]; ACTIONS 415 [sym_kAt]; ACTIONS 417 [sym_kTrue; sym_kFalse];
   ACTIONS 10098 [sym_labelNumber]; ACTIONS 3 [sym__space]; ACTIONS 5 [sym_ppDirective];
   ACTIONS 3 [sym_comment]; ACTIONS 417 [sym_ppFragmentExpr];
   ACTIONS 403 [sym__literalStringMultiline]; ACTIONS 10100 [sym_identifier];
   ACTIONS 423 [sym_kSpecialize]; ACTIONS 427 [sym_kAsm]; ACTIONS 429 [sym_kBegin];
   ACTIONS 431 [sym_kCase]; ACTIONS 433 [sym_kConst]; ACTIONS 3278 [sym_kEnd];
   ACTIONS 437 [sym_kFor]; ACTIONS 439 [sym_kFunction]; ACTIONS 441 [sym_kGoto];
   ACTIONS 443 [sym_kIf]; ACTIONS 445 [sym_kInherited]; ACTIONS 417 [sym_kNil];
   ACTIONS 415 [sym_kNot]; ACTIONS 439 [sym_kProcedure]; ACTIONS 447 [sym_kRaise];
   ACTIONS 449 [sym_kRepeat]; ACTIONS 451 [sym_kString]; ACTIONS 453 [sym_kTry];
   ACTIONS 455 [sym_kVar]; ACTIONS 457 [sym_kWhile]; ACTIONS 459 [sym_kWith]].

(** State 1042. *)
Definition ts_parse_table_1042 : parse_row :=
  [STATE 6463 [sym_if]; STATE 6461 [sym_ifElse; sym_while; sym_repeat; sym_for; sym_foreach;
   sym_try; sym_case; sym_block; sym_asm; sym_with; sym_raise; sym_statement; sym_goto];
   STATE 6544 [sym_labeledStatement]; STATE 6461 [sym__statement]; STATE 14171 [sym_ifTr;
   sym_ifElseTr; sym_whileTr; sym_repeatTr; sym_forTr; sym_foreachTr; sym_tryTr; sym_caseTr];
   STATE 15738 [sym_blockTr]; STATE 14171 [sym_asmTr; sym_withTr; sym_raiseTr; sym_statementTr;
   sym_gotoTr]; STATE 14168 [sym_labeledStatementTr]; STATE 14171 [sym__statementTr];
   STATE 14065 [sym_assignment]; STATE 11905 [sym_varAssignDef]; STATE 14065 [sym_varDef;
   sym_constDef]; STATE 1211 [sym_label]; STATE 8094 [sym__expr; sym_exprConditional];
   STATE 7363 [sym__ref; sym_lambda; sym_inherited; sym_exprDot; sym_exprDeref; sym_exprAs;
   sym_exprTpl; sym_exprSubscript; sym_exprCall]; STATE 8094 [sym_exprBinary; sym_exprUnary];
   STATE 7363 [sym_exprParens; sym_exprBrackets; sym__literal; sym_literalString];
   STATE 6967 [sym__literalString; sym_literalChar]; STATE 7363 [sym_literalNumber];
   STATE 7660 [sym__literalInt; sym__literalFloat]; STATE 6967 [aux_sym_literalString_repeat1];
   ACTIONS 10102 [anon_sym_SEMI]; ACTIONS 9986 [anon_sym_LBRACK]; ACTIONS 9988 [anon_sym_LPAREN];
   ACTIONS 9990 [aux_sym__literalString_token1]; ACTIONS 9992 [anon_sym_POUND];
   ACTIONS 9994 [aux_sym__literalInt_token1]; ACTIONS 9996 [aux_sym__literalInt_token2;
   aux_sym__literalInt_token3]; ACTIONS 9994 [aux_sym__literalFloat_token1];
   ACTIONS 9998 [sym_kAdd; sym_kSub]; ACTIONS 10000 [sym_kAt]; ACTIONS 10002 [sym_kTrue;
   sym_kFalse]; ACTIONS 10004 [sym_labelNumber]; ACTIONS 3 [sym__space];
   ACTIONS 5 [sym_ppDirective]; ACTIONS 3 [sym_comment]; ACTIONS 10002 [sym_ppFragmentExpr];
   ACTIONS 9990 [sym__literalStringMultiline]; ACTIONS 10006 [sym_identifier];
   ACTIONS 10008 [sym_kSpecialize]; ACTIONS 10068 [sym_kAsm]; ACTIONS 10070 [sym_kBegin];
   ACTIONS 10072 [sym_kCase]; ACTIONS 10016 [sym_kConst]; ACTIONS 3286 [sym_kElse];
   ACTIONS 10074 [sym_kFor]; ACTIONS 10020 [sym_kFunction]; ACTIONS 10076 [sym_kGoto];
   ACTIONS 10078 [sym_kIf]; ACTIONS 10026 [sym_kInherited]; ACTIONS 10002 [sym_kNil];
   ACTIONS 10000 [sym_kNot]; ACTIONS 10020 [sym_kProcedure]; ACTIONS 10080 [sym_kRaise];
   ACTIONS 10082 [sym_kRepeat]; ACTIONS 10032 [sym_kString]; ACTIONS 10084 [sym_kTry];
   ACTIONS 10036 [sym_kVar]; ACTIONS 10086 [sym_kWhile]; ACTIONS 10088 [sym_kWith]].

(** State 1043. *)
Definition ts_parse_table_1043 : parse_row :=
  [STATE 6463 [sym_if]; STATE 6470 [sym_ifElse; sym_while; sym_repeat; sym_for; sym_foreach;
   sym_try; sym_case; sym_block; sym_asm; sym_with; sym_raise; sym_statement; sym_goto;
   sym_labeledStatement; sym__statement]; STATE 15904 [sym_ifTr; sym_ifElseTr; sym_whileTr;
   sym_repeatTr; sym_forTr; sym_foreachTr; sym_tryTr; sym_caseTr]; STATE 15738 [sym_blockTr];
   STATE 15904 [sym_asmTr; sym_withTr; sym_raiseTr; sym_statementTr; sym_gotoTr;
   sym_labeledStatementTr; sym__statementTr]; STATE 14065 [sym_assignment];
   STATE 11905 [sym_varAssignDef]; STATE 14065 [sym_varDef; sym_constDef];
   STATE 1211 [sym_label]; STATE 8094 [sym__expr; sym_exprConditional]; STATE 7363 [sym__ref;
   sym_lambda; sym_inherited; sym_exprDot; sym_exprDeref; sym_exprAs; sym_exprTpl;
   sym_exprSubscript; sym_exprCall]; STATE 8094 [sym_exprBinary; sym_exprUnary];
   STATE 7363 [sym_exprParens; sym_exprBrackets; sym__literal; sym_literalString];
   STATE 6967 [sym__literalString; sym_literalChar]; STATE 7363 [sym_literalNumber];
   STATE 7660 [sym__literalInt; sym__literalFloat]; STATE 6967 [aux_sym_literalString_repeat1];
   ACTIONS 10104 [anon_sym_SEMI]; ACTIONS 9986 [anon_sym_LBRACK]; ACTIONS 9988 [anon_sym_LPAREN];
   ACTIONS 9990 [aux_sym__literalString_token1]; ACTIONS 9992 [anon_sym_POUND];
   ACTIONS 9994 [aux_sym__literalInt_token1]; ACTIONS 9996 [aux_sym__literalInt_token2;
   aux_sym__literalInt_token3]; ACTIONS 9994 [aux_sym__literalFloat_token1];
   ACTIONS 9998 [sym_kAdd; sym_kSub]; ACTIONS 10000 [sym_kAt]; ACTIONS 10002 [sym_kTrue;
   sym_kFalse]; ACTIONS 10004 [sym_labelNumber]; ACTIONS 3 [sym__space];
   ACTIONS 5 [sym_ppDirective]; ACTIONS 3 [sym_comment]; ACTIONS 10002 [sym_ppFragmentExpr];
   ACTIONS 9990 [sym__literalStringMultiline]; ACTIONS 10006 [sym_identifier];
   ACTIONS 10008 [sym_kSpecialize]; ACTIONS 10068 [sym_kAsm]; ACTIONS 10070 [sym_kBegin];
   ACTIONS 10072 [sym_kCase]; ACTIONS 10016 [sym_kConst]; ACTIONS 3290 [sym_kElse];
   ACTIONS 10074 [sym_kFor]; ACTIONS 10020 [sym_kFunction]; ACTIONS 10076 [sym_kGoto];
   ACTIONS 10078 [sym_kIf]; ACTIONS 10026 [sym_kInherited]; ACTIONS 10002 [sym_kNil];
   ACTIONS 10000 [sym_kNot]; ACTIONS 10020 [sym_kProcedure]; ACTIONS 10080 [sym_kRaise];
   ACTIONS 10082 [sym_kRepeat]; ACTIONS 10032 [sym_kString]; ACTIONS 10084 [sym_kTry];
   ACTIONS 10036 [sym_kVar]; ACTIONS 10086 [sym_kWhile]; ACTIONS 10088 [sym_kWith]].

(** State 1044. *)
Definition ts_parse_table_1044 : parse_row :=
  [STATE 14086 [sym_if]; STATE 15564 [sym_ifElse; sym_while; sym_repeat; sym_for; sym_foreach;
   sym_try; sym_case; sym_block; sym_asm; sym_with; sym_raise; sym_statement; sym_goto;
   sym_labeledStatement; sym__statement]; STATE 14679 [sym_ifTr; sym_ifElseTr; sym_whileTr;
   sym_repeatTr; sym_forTr; sym_foreachTr; sym_tryTr; sym_caseTr]; STATE 15738 [sym_blockTr];
   STATE 14679 [sym_asmTr; sym_withTr; sym_raiseTr; sym_statementTr; sym_gotoTr;
   sym_labeledStatementTr; sym__statementTr]; STATE 13492 [sym_assignment];
   STATE 11905 [sym_varAssignDef]; STATE 13492 [sym_varDef; sym_constDef];
   STATE 1282 [sym_label]; STATE 7998 [sym__expr; sym_exprConditional]; STATE 7363 [sym__ref;
   sym_lambda; sym_inherited; sym_exprDot; sym_exprDeref; sym_exprAs; sym_exprTpl;
   sym_exprSubscript; sym_exprCall]; STATE 7998 [sym_exprBinary; sym_exprUnary];
   STATE 7363 [sym_exprParens; sym_exprBrackets; sym__literal; sym_literalString];
   STATE 6967 [sym__literalString; sym_literalChar]; STATE 7363 [sym_literalNumber];
   STATE 7660 [sym__literalInt; sym__literalFloat]; STATE 6967 [aux_sym_literalString_repeat1];
   ACTIONS 10106 [anon_sym_SEMI]; ACTIONS 9986 [anon_sym_LBRACK]; ACTIONS 9988 [anon_sym_LPAREN];
   ACTIONS 9990 [aux_sym__literalString_token1]; ACTIONS 9992 [anon_sym_POUND];
   ACTIONS 9994 [aux_sym__literalInt_token1]; ACTIONS 9996 [aux_sym__literalInt_token2;
   aux_sym__literalInt_token3]; ACTIONS 9994 [aux_sym__literalFloat_token1];
   ACTIONS 9998 [sym_kAdd; sym_kSub]; ACTIONS 10000 [sym_kAt]; ACTIONS 10002 [sym_kTrue;
   sym_kFalse]; ACTIONS 10004 [sym_labelNumber]; ACTIONS 3 [sym__space];
   ACTIONS 5 [sym_ppDirective]; ACTIONS 3 [sym_comment]; ACTIONS 10002 [sym_ppFragmentExpr];
   ACTIONS 9990 [sym__literalStringMultiline]; ACTIONS 10006 [sym_identifier];
   ACTIONS 10008 [sym_kSpecialize]; ACTIONS 10108 [sym_kAsm]; ACTIONS 10110 [sym_kBegin];
   ACTIONS 10112 [sym_kCase]; ACTIONS 10016 [sym_kConst]; ACTIONS 10114 [sym_kElse];
   ACTIONS 10116 [sym_kFor]; ACTIONS 10020 [sym_kFunction]; ACTIONS 10118 [sym_kGoto];
   ACTIONS 10120 [sym_kIf]; ACTIONS 10026 [sym_kInherited]; ACTIONS 10002 [sym_kNil];
   ACTIONS 10000 [sym_kNot]; ACTIONS 10020 [sym_kProcedure]; ACTIONS 10122 [sym_kRaise];
   ACTIONS 10124 [sym_kRepeat]; ACTIONS 10032 [sym_kString]; ACTIONS 10126 [sym_kTry];
   ACTIONS 10036 [sym_kVar]; ACTIONS 10128 [sym_kWhile]; ACTIONS 10130 [sym_kWith]].

(** State 1045. *)
Definition ts_parse_table_1045 : parse_row :=
  [STATE 6463 [sym_if]; STATE 6471 [sym_ifElse; sym_while; sym_repeat; sym_for; sym_foreach;
   sym_try; sym_case; sym_block; sym_asm; sym_with; sym_raise; sym_statement; sym_goto;
   sym_labeledStatement; sym__statement]; STATE 15932 [sym_ifTr; sym_ifElseTr; sym_whileTr;
   sym_repeatTr; sym_forTr; sym_foreachTr; sym_tryTr; sym_caseTr]; STATE 15738 [sym_blockTr];
   STATE 15932 [sym_asmTr; sym_withTr; sym_raiseTr; sym_statementTr; sym_gotoTr;
   sym_labeledStatementTr; sym__statementTr]; STATE 14065 [sym_assignment];
   STATE 11905 [sym_varAssignDef]; STATE 14065 [sym_varDef; sym_constDef];
   STATE 1211 [sym_label]; STATE 8094 [sym__expr; sym_exprConditional]; STATE 7363 [sym__ref;
   sym_lambda; sym_inherited; sym_exprDot; sym_exprDeref; sym_exprAs; sym_exprTpl;
   sym_exprSubscript; sym_exprCall]; STATE 8094 [sym_exprBinary; sym_exprUnary];
   STATE 7363 [sym_exprParens; sym_exprBrackets; sym__literal; sym_literalString];
   STATE 6967 [sym__literalString; sym_literalChar]; STATE 7363 [sym_literalNumber];
   STATE 7660 [sym__literalInt; sym__literalFloat]; STATE 6967 [aux_sym_literalString_repeat1];
   ACTIONS 10132 [anon_sym_SEMI]; ACTIONS 9986 [anon_sym_LBRACK]; ACTIONS 9988 [anon_sym_LPAREN];
   ACTIONS 9990 [aux_sym__literalString_token1]; ACTIONS 9992 [anon_sym_POUND];
   ACTIONS 9994 [aux_sym__literalInt_token1]; ACTIONS 9996 [aux_sym__literalInt_token2;
   aux_sym__literalInt_token3]; ACTIONS 9994 [aux_sym__literalFloat_token1];
   ACTIONS 9998 [sym_kAdd; sym_kSub]; ACTIONS 10000 [sym_kAt]; ACTIONS 10002 [sym_kTrue;
   sym_kFalse]; ACTIONS 10004 [sym_labelNumber]; ACTIONS 3 [sym__space];
   ACTIONS 5 [sym_ppDirective]; ACTIONS 3 [sym_comment]; ACTIONS 10002 [sym_ppFragmentExpr];
   ACTIONS 9990 [sym__literalStringMultiline]; ACTIONS 10006 [sym_identifier];
   ACTIONS 10008 [sym_kSpecialize]; ACTIONS 10068 [sym_kAsm]; ACTIONS 10070 [sym_kBegin];
   ACTIONS 10072 [sym_kCase]; ACTIONS 10016 [sym_kConst]; ACTIONS 3296 [sym_kElse];
   ACTIONS 10074 [sym_kFor]; ACTIONS 10020 [sym_kFunction]; ACTIONS 10076 [sym_kGoto];
   ACTIONS 10078 [sym_kIf]; ACTIONS 10026 [sym_kInherited]; ACTIONS 10002 [sym_kNil];
   ACTIONS 10000 [sym_kNot]; ACTIONS 10020 [sym_kProcedure]; ACTIONS 10080 [sym_kRaise];
   ACTIONS 10082 [sym_kRepeat]; ACTIONS 10032 [sym_kString]; ACTIONS 10084 [sym_kTry];
   ACTIONS 10036 [sym_kVar]; ACTIONS 10086 [sym_kWhile]; ACTIONS 10088 [sym_kWith]].

(** State 1046. *)
Definition ts_parse_table_1046 : parse_row :=
  [STATE 6430 [sym_if]; STATE 6397 [sym_ifElse; sym_while; sym_repeat; sym_for; sym_foreach;
   sym_try; sym_case; sym_block; sym_asm; sym_with; sym_raise; sym_statement; sym_goto;
   sym_labeledStatement; sym__statement]; STATE 15874 [sym_ifTr; sym_ifElseTr; sym_whileTr;
   sym_repeatTr; sym_forTr; sym_foreachTr; sym_tryTr; sym_caseTr]; STATE 15738 [sym_blockTr];
   STATE 15874 [sym_asmTr; sym_withTr; sym_raiseTr; sym_statementTr; sym_gotoTr;
   sym_labeledStatementTr; sym__statementTr]; STATE 13152 [sym_assignment];
   STATE 11905 [sym_varAssignDef]; STATE 13152 [sym_varDef; sym_constDef];
   STATE 1267 [sym_label]; STATE 7985 [sym__expr; sym_exprConditional]; STATE 7363 [sym__ref;
   sym_lambda; sym_inherited; sym_exprDot; sym_exprDeref; sym_exprAs; sym_exprTpl;
   sym_exprSubscript; sym_exprCall]; STATE 7985 [sym_exprBinary; sym_exprUnary];
   STATE 7363 [sym_exprParens; sym_exprBrackets; sym__literal; sym_literalString];
   STATE 6967 [sym__literalString; sym_literalChar]; STATE 7363 [sym_literalNumber];
   STATE 7660 [sym__literalInt; sym__literalFloat]; STATE 6967 [aux_sym_literalString_repeat1];
   ACTIONS 10134 [anon_sym_SEMI]; ACTIONS 9986 [anon_sym_LBRACK]; ACTIONS 9988 [anon_sym_LPAREN];
   ACTIONS 9990 [aux_sym__literalString_token1]; ACTIONS 9992 [anon_sym_POUND];
   ACTIONS 9994 [aux_sym__literalInt_token1]; ACTIONS 9996 [aux_sym__literalInt_token2;
   aux_sym__literalInt_token3]; ACTIONS 9994 [aux_sym__literalFloat_token1];
   ACTIONS 9998 [sym_kAdd; sym_kSub]; ACTIONS 10000 [sym_kAt]; ACTIONS 10002 [sym_kTrue;
   sym_kFalse]; ACTIONS 10004 [sym_labelNumber]; ACTIONS 3 [sym__space];
   ACTIONS 5 [sym_ppDirective]; ACTIONS 3 [sym_comment]; ACTIONS 10002 [sym_ppFragmentExpr];
   ACTIONS 9990 [sym__literalStringMultiline]; ACTIONS 10006 [sym_identifier];
   ACTIONS 10008 [sym_kSpecialize]; ACTIONS 10136 [sym_kAsm]; ACTIONS 10138 [sym_kBegin];
   ACTIONS 10140 [sym_kCase]; ACTIONS 10016 [sym_kConst]; ACTIONS 3272 [sym_kElse];
   ACTIONS 10142 [sym_kFor]; ACTIONS 10020 [sym_kFunction]; ACTIONS 10144 [sym_kGoto];
   ACTIONS 10146 [sym_kIf]; ACTIONS 10026 [sym_kInherited]; ACTIONS 10002 [sym_kNil];
   ACTIONS 10000 [sym_kNot]; ACTIONS 10020 [sym_kProcedure]; ACTIONS 10148 [sym_kRaise];
   ACTIONS 10150 [sym_kRepeat]; ACTIONS 10032 [sym_kString]; ACTIONS 10152 [sym_kTry];
   ACTIONS 10036 [sym_kVar]; ACTIONS 10154 [sym_kWhile]; ACTIONS 10156 [sym_kWith]].

(** State 1047. *)
Definition ts_parse_table_1047 : parse_row :=
  [STATE 6430 [sym_if]; STATE 6357 [sym_ifElse; sym_while; sym_repeat; sym_for; sym_foreach;
   sym_try; sym_case; sym_block; sym_asm; sym_with; sym_raise; sym_statement; sym_goto;
   sym_labeledStatement; sym__statement]; STATE 15916 [sym_ifTr; sym_ifElseTr; sym_whileTr;
   sym_repeatTr; sym_forTr; sym_foreachTr; sym_tryTr; sym_caseTr]; STATE 15738 [sym_blockTr];
   STATE 15916 [sym_asmTr; sym_withTr; sym_raiseTr; sym_statementTr; sym_gotoTr;
   sym_labeledStatementTr; sym__statementTr]; STATE 13152 [sym_assignment];
   STATE 11905 [sym_varAssignDef]; STATE 13152 [sym_varDef; sym_constDef];
   STATE 1267 [sym_label]; STATE 7985 [sym__expr; sym_exprConditional]; STATE 7363 [sym__ref;
   sym_lambda; sym_inherited; sym_exprDot; sym_exprDeref; sym_exprAs; sym_exprTpl;
   sym_exprSubscript; sym_exprCall]; STATE 7985 [sym_exprBinary; sym_exprUnary];
   STATE 7363 [sym_exprParens; sym_exprBrackets; sym__literal; sym_literalString];
   STATE 6967 [sym__literalString; sym_literalChar]; STATE 7363 [sym_literalNumber];
   STATE 7660 [sym__literalInt; sym__literalFloat]; STATE 6967 [aux_sym_literalString_repeat1];
   ACTIONS 10158 [anon_sym_SEMI]; ACTIONS 9986 [anon_sym_LBRACK]; ACTIONS 9988 [anon_sym_LPAREN];
   ACTIONS 9990 [aux_sym__literalString_token1]; ACTIONS 9992 [anon_sym_POUND];
   ACTIONS 9994 [aux_sym__literalInt_token1]; ACTIONS 9996 [aux_sym__literalInt_token2;
   aux_sym__literalInt_token3]; ACTIONS 9994 [aux_sym__literalFloat_token1];
   ACTIONS 9998 [sym_kAdd; sym_kSub]; ACTIONS 10000 [sym_kAt]; ACTIONS 10002 [sym_kTrue;
   sym_kFalse]; ACTIONS 10004 [sym_labelNumber]; ACTIONS 3 [sym__space];
   ACTIONS 5 [sym_ppDirective]; ACTIONS 3 [sym_comment]; ACTIONS 10002 [sym_ppFragmentExpr];
   ACTIONS 9990 [sym__literalStringMultiline]; ACTIONS 10006 [sym_identifier];
   ACTIONS 10008 [sym_kSpecialize]; ACTIONS 10136 [sym_kAsm]; ACTIONS 10138 [sym_kBegin];
   ACTIONS 10140 [sym_kCase]; ACTIONS 10016 [sym_kConst]; ACTIONS 3278 [sym_kElse];
   ACTIONS 10142 [sym_kFor]; ACTIONS 10020 [sym_kFunction]; ACTIONS 10144 [sym_kGoto];
   ACTIONS 10146 [sym_kIf]; ACTIONS 10026 [sym_kInherited]; ACTIONS 10002 [sym_kNil];
   ACTIONS 10000 [sym_kNot]; ACTIONS 10020 [sym_kProcedure]; ACTIONS 10148 [sym_kRaise];
   ACTIONS 10150 [sym_kRepeat]; ACTIONS 10032 [sym_kString]; ACTIONS 10152 [sym_kTry];
   ACTIONS 10036 [sym_kVar]; ACTIONS 10154 [sym_kWhile]; ACTIONS 10156 [sym_kWith]].

(** State 1048. *)
Definition ts_parse_table_1048 : parse_row :=
  [STATE 14011 [sym_if]; STATE 14064 [sym_ifElse; sym_while; sym_repeat; sym_for; sym_foreach;
   sym_try; sym_case; sym_block; sym_asm; sym_with; sym_raise; sym_statement; sym_goto;
   sym_labeledStatement; sym__statement]; STATE 15475 [sym_ifTr; sym_ifElseTr; sym_whileTr;
   sym_repeatTr; sym_forTr; sym_foreachTr; sym_tryTr; sym_caseTr]; STATE 15738 [sym_blockTr];
   STATE 15475 [sym_asmTr; sym_withTr; sym_raiseTr; sym_statementTr; sym_gotoTr;
   sym_labeledStatementTr; sym__statementTr]; STATE 13502 [sym_assignment];
   STATE 11905 [sym_varAssignDef]; STATE 13502 [sym_varDef; sym_constDef];
   STATE 1228 [sym_label]; STATE 8000 [sym__expr; sym_exprConditional]; STATE 7363 [sym__ref;
   sym_lambda; sym_inherited; sym_exprDot; sym_exprDeref; sym_exprAs; sym_exprTpl;
   sym_exprSubscript; sym_exprCall]; STATE 8000 [sym_exprBinary; sym_exprUnary];
   STATE 7363 [sym_exprParens; sym_exprBrackets; sym__literal; sym_literalString];
   STATE 6967 [sym__literalString; sym_literalChar]; STATE 7363 [sym_literalNumber];
   STATE 7660 [sym__literalInt; sym__literalFloat]; STATE 6967 [aux_sym_literalString_repeat1];
   ACTIONS 10160 [anon_sym_SEMI]; ACTIONS 9986 [anon_sym_LBRACK]; ACTIONS 9988 [anon_sym_LPAREN];
   ACTIONS 9990 [aux_sym__literalString_token1]; ACTIONS 9992 [anon_sym_POUND];
   ACTIONS 9994 [aux_sym__literalInt_token1]; ACTIONS 9996 [aux_sym__literalInt_token2;
   aux_sym__literalInt_token3]; ACTIONS 9994 [aux_sym__literalFloat_token1];
   ACTIONS 9998 [sym_kAdd; sym_kSub]; ACTIONS 10000 [sym_kAt]; ACTIONS 10002 [sym_kTrue;
   sym_kFalse]; ACTIONS 10004 [sym_labelNumber]; ACTIONS 3 [sym__space];
   ACTIONS 5 [sym_ppDirective]; ACTIONS 3 [sym_comment]; ACTIONS 10002 [sym_ppFragmentExpr];
   ACTIONS 9990 [sym__literalStringMultiline]; ACTIONS 10006 [sym_identifier];
   ACTIONS 10008 [sym_kSpecialize]; ACTIONS 10162 [sym_kAsm]; ACTIONS 10164 [sym_kBegin];
   ACTIONS 10166 [sym_kCase]; ACTIONS 10016 [sym_kConst]; ACTIONS 10168 [sym_kElse];
   ACTIONS 10170 [sym_kFor]; ACTIONS 10020 [sym_kFunction]; ACTIONS 10172 [sym_kGoto];
   ACTIONS 10174 [sym_kIf]; ACTIONS 10026 [sym_kInherited]; ACTIONS 10002 [sym_kNil];
   ACTIONS 10000 [sym_kNot]; ACTIONS 10020 [sym_kProcedure]; ACTIONS 10176 [sym_kRaise];
   ACTIONS 10178 [sym_kRepeat]; ACTIONS 10032 [sym_kString]; ACTIONS 10180 [sym_kTry];
   ACTIONS 10036 [sym_kVar]; ACTIONS 10182 [sym_kWhile]; ACTIONS 10184 [sym_kWith]].

(** State 1049. *)
Definition ts_parse_table_1049 : parse_row :=
  [STATE 6430 [sym_if]; STATE 6442 [sym_ifElse; sym_while; sym_repeat; sym_for; sym_foreach;
   sym_try; sym_case; sym_block; sym_asm; sym_with; sym_raise; sym_statement; sym_goto;
   sym_labeledStatement; sym__statement]; STATE 15171 [sym_ifTr; sym_ifElseTr; sym_whileTr;
   sym_repeatTr; sym_forTr; sym_foreachTr; sym_tryTr; sym_caseTr]; STATE 15738 [sym_blockTr];
   STATE 15171 [sym_asmTr; sym_withTr; sym_raiseTr; sym_statementTr; sym_gotoTr;
   sym_labeledStatementTr; sym__statementTr]; STATE 13152 [sym_assignment];
   STATE 11905 [sym_varAssignDef]; STATE 13152 [sym_varDef; sym_constDef];
   STATE 1267 [sym_label]; STATE 7985 [sym__expr; sym_exprConditional]; STATE 7363 [sym__ref;
   sym_lambda; sym_inherited; sym_exprDot; sym_exprDeref; sym_exprAs; sym_exprTpl;
   sym_exprSubscript; sym_exprCall]; STATE 7985 [sym_exprBinary; sym_exprUnary];
   STATE 7363 [sym_exprParens; sym_exprBrackets; sym__literal; sym_literalString];
   STATE 6967 [sym__literalString; sym_literalChar]; STATE 7363 [sym_literalNumber];
   STATE 7660 [sym__literalInt; sym__literalFloat]; STATE 6967 [aux_sym_literalString_repeat1];
   ACTIONS 10186 [anon_sym_SEMI]; ACTIONS 9986 [anon_sym_LBRACK]; ACTIONS 9988 [anon_sym_LPAREN];
   ACTIONS 9990 [aux_sym__literalString_token1]; ACTIONS 9992 [anon_sym_POUND];
   ACTIONS 9994 [aux_sym__literalInt_token1]; ACTIONS 9996 [aux_sym__literalInt_token2;
   aux_sym__literalInt_token3]; ACTIONS 9994 [aux_sym__literalFloat_token1];
   ACTIONS 9998 [sym_kAdd; sym_kSub]; ACTIONS 10000 [sym_kAt]; ACTIONS 10002 [sym_kTrue;
   sym_kFalse]; ACTIONS 10004 [sym_labelNumber]; ACTIONS 3 [sym__space];
   ACTIONS 5 [sym_ppDirective]; ACTIONS 3 [sym_comment]; ACTIONS 10002 [sym_ppFragmentExpr];
   ACTIONS 9990 [sym__literalStringMultiline]; ACTIONS 10006 [sym_identifier];
   ACTIONS 10008 [sym_kSpecialize]; ACTIONS 10136 [sym_kAsm]; ACTIONS 10138 [sym_kBegin];
   ACTIONS 10140 [sym_kCase]; ACTIONS 10016 [sym_kConst]; ACTIONS 3282 [sym_kElse];
   ACTIONS 10142 [sym_kFor]; ACTIONS 10020 [sym_kFunction]; ACTIONS 10144 [sym_kGoto];
   ACTIONS 10146 [sym_kIf]; ACTIONS 10026 [sym_kInherited]; ACTIONS 10002 [sym_kNil];
   ACTIONS 10000 [sym_kNot]; ACTIONS 10020 [sym_kProcedure]; ACTIONS 10148 [sym_kRaise];
   ACTIONS 10150 [sym_kRepeat]; ACTIONS 10032 [sym_kString]; ACTIONS 10152 [sym_kTry];
   ACTIONS 10036 [sym_kVar]; ACTIONS 10154 [sym_kWhile]; ACTIONS 10156 [sym_kWith]].

(** State 1050. *)
Definition ts_parse_table_1050 : parse_row :=
  [STATE 6273 [sym_if]; STATE 6151 [sym_ifElse; sym_while; sym_repeat; sym_for; sym_foreach;
   sym_try; sym_case; sym_block; sym_asm; sym_with; sym_raise; sym_statement; sym_goto;
   sym_labeledStatement; sym__statement]; STATE 14897 [sym_ifTr; sym_ifElseTr; sym_whileTr;
   sym_repeatTr; sym_forTr; sym_foreachTr; sym_tryTr; sym_caseTr]; STATE 14967 [sym_blockTr];
   STATE 14897 [sym_asmTr; sym_withTr; sym_raiseTr; sym_statementTr; sym_gotoTr;
   sym_labeledStatementTr; sym__statementTr]; STATE 13420 [sym_assignment];
   STATE 11684 [sym_varAssignDef]; STATE 13420 [sym_varDef; sym_constDef];
   STATE 1260 [sym_label]; STATE 8128 [sym__expr; sym_exprConditional]; STATE 7533 [sym__ref;
   sym_lambda; sym_inherited; sym_exprDot; sym_exprDeref; sym_exprAs; sym_exprTpl;
   sym_exprSubscript; sym_exprCall]; STATE 8128 [sym_exprBinary; sym_exprUnary];
   STATE 7533 [sym_exprParens; sym_exprBrackets; sym__literal; sym_literalString];
   STATE 6915 [sym__literalString; sym_literalChar]; STATE 7533 [sym_literalNumber];
   STATE 7570 [sym__literalInt; sym__literalFloat]; STATE 6915 [aux_sym_literalString_repeat1];
   ACTIONS 9982 [anon_sym_SEMI]; ACTIONS 927 [anon_sym_LBRACK]; ACTIONS 929 [anon_sym_LPAREN];
   ACTIONS 931 [aux_sym__literalString_token1]; ACTIONS 933 [anon_sym_POUND];
   ACTIONS 935 [aux_sym__literalInt_token1]; ACTIONS 937 [aux_sym__literalInt_token2;
   aux_sym__literalInt_token3]; ACTIONS 935 [aux_sym__literalFloat_token1];
   ACTIONS 939 [sym_kAdd; sym_kSub]; ACTIONS 941 [sym_kAt]; ACTIONS 943 [sym_kTrue; sym_kFalse];
   ACTIONS 10188 [sym_labelNumber]; ACTIONS 3 [sym__space]; ACTIONS 5 [sym_ppDirective];
   ACTIONS 3 [sym_comment]; ACTIONS 943 [sym_ppFragmentExpr];
   ACTIONS 931 [sym__literalStringMultiline]; ACTIONS 10190 [sym_identifier];
   ACTIONS 949 [sym_kSpecialize]; ACTIONS 951 [sym_kAsm]; ACTIONS 953 [sym_kBegin];
   ACTIONS 955 [sym_kCase]; ACTIONS 957 [sym_kConst]; ACTIONS 959 [sym_kFor];
   ACTIONS 961 [sym_kFunction]; ACTIONS 963 [sym_kGoto]; ACTIONS 965 [sym_kIf];
   ACTIONS 967 [sym_kInherited]; ACTIONS 943 [sym_kNil]; ACTIONS 941 [sym_kNot];
   ACTIONS 961 [sym_kProcedure]; ACTIONS 969 [sym_kRaise]; ACTIONS 971 [sym_kRepeat];
   ACTIONS 973 [sym_kString]; ACTIONS 975 [sym_kTry]; ACTIONS 3282 [sym_kUntil];
   ACTIONS 979 [sym_kVar]; ACTIONS 981 [sym_kWhile]; ACTIONS 983 [sym_kWith]].

(** State 1051. *)
Definition ts_parse_table_1051 : parse_row :=
  [STATE 6430 [sym_if]; STATE 6393 [sym_ifElse; sym_while; sym_repeat; sym_for; sym_foreach;
   sym_try; sym_case; sym_block; sym_asm; sym_with; sym_raise; sym_statement; sym_goto];
   STATE 6390 [sym_labeledStatement]; STATE 6393 [sym__statement]; STATE 14171 [sym_ifTr;
   sym_ifElseTr; sym_whileTr; sym_repeatTr; sym_forTr; sym_foreachTr; sym_tryTr; sym_caseTr];
   STATE 15738 [sym_blockTr]; STATE 14171 [sym_asmTr; sym_withTr; sym_raiseTr; sym_statementTr;
   sym_gotoTr]; STATE 14168 [sym_labeledStatementTr]; STATE 14171 [sym__statementTr];
   STATE 13152 [sym_assignment]; STATE 11905 [sym_varAssignDef]; STATE 13152 [sym_varDef;
   sym_constDef]; STATE 1267 [sym_label]; STATE 7985 [sym__expr; sym_exprConditional];
   STATE 7363 [sym__ref; sym_lambda; sym_inherited; sym_exprDot; sym_exprDeref; sym_exprAs;
   sym_exprTpl; sym_exprSubscript; sym_exprCall]; STATE 7985 [sym_exprBinary; sym_exprUnary];
   STATE 7363 [sym_exprParens; sym_exprBrackets; sym__literal; sym_literalString];
   STATE 6967 [sym__literalString; sym_literalChar]; STATE 7363 [sym_literalNumber];
   STATE 7660 [sym__literalInt; sym__literalFloat]; STATE 6967 [aux_sym_literalString_repeat1];
   ACTIONS 10192 [anon_sym_SEMI]; ACTIONS 9986 [anon_sym_LBRACK]; ACTIONS 9988 [anon_sym_LPAREN];
   ACTIONS 9990 [aux_sym__literalString_token1]; ACTIONS 9992 [anon_sym_POUND];
   ACTIONS 9994 [aux_sym__literalInt_token1]; ACTIONS 9996 [aux_sym__literalInt_token2;
   aux_sym__literalInt_token3]; ACTIONS 9994 [aux_sym__literalFloat_token1];
   ACTIONS 9998 [sym_kAdd; sym_kSub]; ACTIONS 10000 [sym_kAt]; ACTIONS 10002 [sym_kTrue;
   sym_kFalse]; ACTIONS 10004 [sym_labelNumber]; ACTIONS 3 [sym__space];
   ACTIONS 5 [sym_ppDirective]; ACTIONS 3 [sym_comment]; ACTIONS 10002 [sym_ppFragmentExpr];
   ACTIONS 9990 [sym__literalStringMultiline]; ACTIONS 10006 [sym_identifier];
   ACTIONS 10008 [sym_kSpecialize]; ACTIONS 10136 [sym_kAsm]; ACTIONS 10138 [sym_kBegin];
   ACTIONS 10140 [sym_kCase]; ACTIONS 10016 [sym_kConst]; ACTIONS 3286 [sym_kElse];
   ACTIONS 10142 [sym_kFor]; ACTIONS 10020 [sym_kFunction]; ACTIONS 10144 [sym_kGoto];
   ACTIONS 10146 [sym_kIf]; ACTIONS 10026 [sym_kInherited]; ACTIONS 10002 [sym_kNil];
   ACTIONS 10000 [sym_kNot]; ACTIONS 10020 [sym_kProcedure]; ACTIONS 10148 [sym_kRaise];
   ACTIONS 10150 [sym_kRepeat]; ACTIONS 10032 [sym_kString]; ACTIONS 10152 [sym_kTry];
   ACTIONS 10036 [sym_kVar]; ACTIONS 10154 [sym_kWhile]; ACTIONS 10156 [sym_kWith]].

(** State 1052. *)
Definition ts_parse_table_1052 : parse_row :=
  [STATE 6430 [sym_if]; STATE 6401 [sym_ifElse; sym_while; sym_repeat; sym_for; sym_foreach;
   sym_try; sym_case; sym_block; sym_asm; sym_with; sym_raise; sym_statement; sym_goto;
   sym_labeledStatement; sym__statement]; STATE 15904 [sym_ifTr; sym_ifElseTr; sym_whileTr;
   sym_repeatTr; sym_forTr; sym_foreachTr; sym_tryTr; sym_caseTr]; STATE 15738 [sym_blockTr];
   STATE 15904 [sym_asmTr; sym_withTr; sym_raiseTr; sym_statementTr; sym_gotoTr;
   sym_labeledStatementTr; sym__statementTr]; STATE 13152 [sym_assignment];
   STATE 11905 [sym_varAssignDef]; STATE 13152 [sym_varDef; sym_constDef];
   STATE 1267 [sym_label]; STATE 7985 [sym__expr; sym_exprConditional]; STATE 7363 [sym__ref;
   sym_lambda; sym_inherited; sym_exprDot; sym_exprDeref; sym_exprAs; sym_exprTpl;
   sym_exprSubscript; sym_exprCall]; STATE 7985 [sym_exprBinary; sym_exprUnary];
   STATE 7363 [sym_exprParens; sym_exprBrackets; sym__literal; sym_literalString];
   STATE 6967 [sym__literalString; sym_literalChar]; STATE 7363 [sym_literalNumber];
   STATE 7660 [sym__literalInt; sym__literalFloat]; STATE 6967 [aux_sym_literalString_repeat1];
   ACTIONS 10194 [anon_sym_SEMI]; ACTIONS 9986 [anon_sym_LBRACK]; ACTIONS 9988 [anon_sym_LPAREN];
   ACTIONS 9990 [aux_sym__literalString_token1]; ACTIONS 9992 [anon_sym_POUND];
   ACTIONS 9994 [aux_sym__literalInt_token1]; ACTIONS 9996 [aux_sym__literalInt_token2;
   aux_sym__literalInt_token3]; ACTIONS 9994 [aux_sym__literalFloat_token1];
   ACTIONS 9998 [sym_kAdd; sym_kSub]; ACTIONS 10000 [sym_kAt]; ACTIONS 10002 [sym_kTrue;
   sym_kFalse]; ACTIONS 10004 [sym_labelNumber]; ACTIONS 3 [sym__space];
   ACTIONS 5 [sym_ppDirective]; ACTIONS 3 [sym_comment]; ACTIONS 10002 [sym_ppFragmentExpr];
   ACTIONS 9990 [sym__literalStringMultiline]; ACTIONS 10006 [sym_identifier];
   ACTIONS 10008 [sym_kSpecialize]; ACTIONS 10136 [sym_kAsm]; ACTIONS 10138 [sym_kBegin];
   ACTIONS 10140 [sym_kCase]; ACTIONS 10016 [sym_kConst]; ACTIONS 3290 [sym_kElse];
   ACTIONS 10142 [sym_kFor]; ACTIONS 10020 [sym_kFunction]; ACTIONS 10144 [sym_kGoto];
   ACTIONS 10146 [sym_kIf]; ACTIONS 10026 [sym_kInherited]; ACTIONS 10002 [sym_kNil];
   ACTIONS 10000 [sym_kNot]; ACTIONS 10020 [sym_kProcedure]; ACTIONS 10148 [sym_kRaise];
   ACTIONS 10150 [sym_kRepeat]; ACTIONS 10032 [sym_kString]; ACTIONS 10152 [sym_kTry];
   ACTIONS 10036 [sym_kVar]; ACTIONS 10154 [sym_kWhile]; ACTIONS 10156 [sym_kWith]].

(** State 1053. *)
Definition ts_parse_table_1053 : parse_row :=
  [STATE 6430 [sym_if]; STATE 6402 [sym_ifElse; sym_while; sym_repeat; sym_for; sym_foreach;
   sym_try; sym_case; sym_block; sym_asm; sym_with; sym_raise; sym_statement; sym_goto;
   sym_labeledStatement; sym__statement]; STATE 15932 [sym_ifTr; sym_ifElseTr; sym_whileTr;
   sym_repeatTr; sym_forTr; sym_foreachTr; sym_tryTr; sym_caseTr]; STATE 15738 [sym_blockTr];
   STATE 15932 [sym_asmTr; sym_withTr; sym_raiseTr; sym_statementTr; sym_gotoTr;
   sym_labeledStatementTr; sym__statementTr]; STATE 13152 [sym_assignment];
   STATE 11905 [sym_varAssignDef]; STATE 13152 [sym_varDef; sym_constDef];
   STATE 1267 [sym_label]; STATE 7985 [sym__expr; sym_exprConditional]; STATE 7363 [sym__ref;
   sym_lambda; sym_inherited; sym_exprDot; sym_exprDeref; sym_exprAs; sym_exprTpl;
   sym_exprSubscript; sym_exprCall]; STATE 7985 [sym_exprBinary; sym_exprUnary];
   STATE 7363 [sym_exprParens; sym_exprBrackets; sym__literal; sym_literalString];
   STATE 6967 [sym__literalString; sym_literalChar]; STATE 7363 [sym_literalNumber];
   STATE 7660 [sym__literalInt; sym__literalFloat]; STATE 6967 [aux_sym_literalString_repeat1];
   ACTIONS 10196 [anon_sym_SEMI]; ACTIONS 9986 [anon_sym_LBRACK]; ACTIONS 9988 [anon_sym_LPAREN];
   ACTIONS 9990 [aux_sym__literalString_token1]; ACTIONS 9992 [anon_sym_POUND];
   ACTIONS 9994 [aux_sym__literalInt_token1]; ACTIONS 9996 [aux_sym__literalInt_token2;
   aux_sym__literalInt_token3]; ACTIONS 9994 [aux_sym__literalFloat_token1];
   ACTIONS 9998 [sym_kAdd; sym_kSub]; ACTIONS 10000 [sym_kAt]; ACTIONS 10002 [sym_kTrue;
   sym_kFalse]; ACTIONS 10004 [sym_labelNumber]; ACTIONS 3 [sym__space];
   ACTIONS 5 [sym_ppDirective]; ACTIONS 3 [sym_comment]; ACTIONS 10002 [sym_ppFragmentExpr];
   ACTIONS 9990 [sym__literalStringMultiline]; ACTIONS 10006 [sym_identifier];
   ACTIONS 10008 [sym_kSpecialize]; ACTIONS 10136 [sym_kAsm]; ACTIONS 10138 [sym_kBegin];
   ACTIONS 10140 [sym_kCase]; ACTIONS 10016 [sym_kConst]; ACTIONS 3296 [sym_kElse];
   ACTIONS 10142 [sym_kFor]; ACTIONS 10020 [sym_kFunction]; ACTIONS 10144 [sym_kGoto];
   ACTIONS 10146 [sym_kIf]; ACTIONS 10026 [sym_kInherited]; ACTIONS 10002 [sym_kNil];
   ACTIONS 10000 [sym_kNot]; ACTIONS 10020 [sym_kProcedure]; ACTIONS 10148 [sym_kRaise];
   ACTIONS 10150 [sym_kRepeat]; ACTIONS 10032 [sym_kString]; ACTIONS 10152 [sym_kTry];
   ACTIONS 10036 [sym_kVar]; ACTIONS 10154 [sym_kWhile]; ACTIONS 10156 [sym_kWith]].

(** State 1054. *)
Definition ts_parse_table_1054 : parse_row :=
  [STATE 6338 [sym_if]; STATE 6331 [sym_ifElse; sym_while; sym_repeat; sym_for; sym_foreach;
   sym_try; sym_case; sym_block; sym_asm; sym_with; sym_raise; sym_statement; sym_goto;
   sym_labeledStatement; sym__statement]; STATE 15848 [sym_ifTr; sym_ifElseTr; sym_whileTr;
   sym_repeatTr; sym_forTr; sym_foreachTr; sym_tryTr; sym_caseTr]; STATE 15738 [sym_blockTr];
   STATE 15848 [sym_asmTr; sym_withTr; sym_raiseTr; sym_statementTr; sym_gotoTr;
   sym_labeledStatementTr; sym__statementTr]; STATE 13660 [sym_assignment];
   STATE 11905 [sym_varAssignDef]; STATE 13660 [sym_varDef; sym_constDef];
   STATE 1257 [sym_label]; STATE 7984 [sym__expr; sym_exprConditional]; STATE 7363 [sym__ref;
   sym_lambda; sym_inherited; sym_exprDot; sym_exprDeref; sym_exprAs; sym_exprTpl;
   sym_exprSubscript; sym_exprCall]; STATE 7984 [sym_exprBinary; sym_exprUnary];
   STATE 7363 [sym_exprParens; sym_exprBrackets; sym__literal; sym_literalString];
   STATE 6967 [sym__literalString; sym_literalChar]; STATE 7363 [sym_literalNumber];
   STATE 7660 [sym__literalInt; sym__literalFloat]; STATE 6967 [aux_sym_literalString_repeat1];
   ACTIONS 10198 [anon_sym_SEMI]; ACTIONS 9986 [anon_sym_LBRACK]; ACTIONS 9988 [anon_sym_LPAREN];
   ACTIONS 9990 [aux_sym__literalString_token1]; ACTIONS 9992 [anon_sym_POUND];
   ACTIONS 9994 [aux_sym__literalInt_token1]; ACTIONS 9996 [aux_sym__literalInt_token2;
   aux_sym__literalInt_token3]; ACTIONS 9994 [aux_sym__literalFloat_token1];
   ACTIONS 9998 [sym_kAdd; sym_kSub]; ACTIONS 10000 [sym_kAt]; ACTIONS 10002 [sym_kTrue;
   sym_kFalse]; ACTIONS 10004 [sym_labelNumber]; ACTIONS 3 [sym__space];
   ACTIONS 5 [sym_ppDirective]; ACTIONS 3 [sym_comment]; ACTIONS 10002 [sym_ppFragmentExpr];
   ACTIONS 9990 [sym__literalStringMultiline]; ACTIONS 10006 [sym_identifier];
   ACTIONS 10008 [sym_kSpecialize]; ACTIONS 10200 [sym_kAsm]; ACTIONS 10202 [sym_kBegin];
   ACTIONS 10204 [sym_kCase]; ACTIONS 10016 [sym_kConst]; ACTIONS 10206 [sym_kElse];
   ACTIONS 10208 [sym_kFor]; ACTIONS 10020 [sym_kFunction]; ACTIONS 10210 [sym_kGoto];
   ACTIONS 10212 [sym_kIf]; ACTIONS 10026 [sym_kInherited]; ACTIONS 10002 [sym_kNil];
   ACTIONS 10000 [sym_kNot]; ACTIONS 10020 [sym_kProcedure]; ACTIONS 10214 [sym_kRaise];
   ACTIONS 10216 [sym_kRepeat]; ACTIONS 10032 [sym_kString]; ACTIONS 10218 [sym_kTry];
   ACTIONS 10036 [sym_kVar]; ACTIONS 10220 [sym_kWhile]; ACTIONS 10222 [sym_kWith]].

(** State 1055. *)
Definition ts_parse_table_1055 : parse_row :=
  [STATE 6430 [sym_if]; STATE 6405 [sym_ifElse; sym_while; sym_repeat; sym_for; sym_foreach;
   sym_try; sym_case; sym_block; sym_asm; sym_with; sym_raise; sym_statement; sym_goto;
   sym_labeledStatement; sym__statement]; STATE 15995 [sym_ifTr; sym_ifElseTr; sym_whileTr;
   sym_repeatTr; sym_forTr; sym_foreachTr; sym_tryTr; sym_caseTr]; STATE 15738 [sym_blockTr];
   STATE 15995 [sym_asmTr; sym_withTr; sym_raiseTr; sym_statementTr; sym_gotoTr;
   sym_labeledStatementTr; sym__statementTr]; STATE 13152 [sym_assignment];
   STATE 11905 [sym_varAssignDef]; STATE 13152 [sym_varDef; sym_constDef];
   STATE 1267 [sym_label]; STATE 7985 [sym__expr; sym_exprConditional]; STATE 7363 [sym__ref;
   sym_lambda; sym_inherited; sym_exprDot; sym_exprDeref; sym_exprAs; sym_exprTpl;
   sym_exprSubscript; sym_exprCall]; STATE 7985 [sym_exprBinary; sym_exprUnary];
   STATE 7363 [sym_exprParens; sym_exprBrackets; sym__literal; sym_literalString];
   STATE 6967 [sym__literalString; sym_literalChar]; STATE 7363 [sym_literalNumber];
   STATE 7660 [sym__literalInt; sym__literalFloat]; STATE 6967 [aux_sym_literalString_repeat1];
   ACTIONS 10224 [anon_sym_SEMI]; ACTIONS 9986 [anon_sym_LBRACK]; ACTIONS 9988 [anon_sym_LPAREN];
   ACTIONS 9990 [aux_sym__literalString_token1]; ACTIONS 9992 [anon_sym_POUND];
   ACTIONS 9994 [aux_sym__literalInt_token1]; ACTIONS 9996 [aux_sym__literalInt_token2;
   aux_sym__literalInt_token3]; ACTIONS 9994 [aux_sym__literalFloat_token1];
   ACTIONS 9998 [sym_kAdd; sym_kSub]; ACTIONS 10000 [sym_kAt]; ACTIONS 10002 [sym_kTrue;
   sym_kFalse]; ACTIONS 10004 [sym_labelNumber]; ACTIONS 3 [sym__space];
   ACTIONS 5 [sym_ppDirective]; ACTIONS 3 [sym_comment]; ACTIONS 10002 [sym_ppFragmentExpr];
   ACTIONS 9990 [sym__literalStringMultiline]; ACTIONS 10006 [sym_identifier];
   ACTIONS 10008 [sym_kSpecialize]; ACTIONS 10136 [sym_kAsm]; ACTIONS 10138 [sym_kBegin];
   ACTIONS 10140 [sym_kCase]; ACTIONS 10016 [sym_kConst]; ACTIONS 3304 [sym_kElse];
   ACTIONS 10142 [sym_kFor]; ACTIONS 10020 [sym_kFunction]; ACTIONS 10144 [sym_kGoto];
   ACTIONS 10146 [sym_kIf]; ACTIONS 10026 [sym_kInherited]; ACTIONS 10002 [sym_kNil];
   ACTIONS 10000 [sym_kNot]; ACTIONS 10020 [sym_kProcedure]; ACTIONS 10148 [sym_kRaise];
   ACTIONS 10150 [sym_kRepeat]; ACTIONS 10032 [sym_kString]; ACTIONS 10152 [sym_kTry];
   ACTIONS 10036 [sym_kVar]; ACTIONS 10154 [sym_kWhile]; ACTIONS 10156 [sym_kWith]].

(** State 1056. *)
Definition ts_parse_table_1056 : parse_row :=
  [STATE 14637 [sym_if]; STATE 14135 [sym_ifElse; sym_while; sym_repeat; sym_for; sym_foreach;
   sym_try; sym_case; sym_block; sym_asm; sym_with; sym_raise; sym_statement; sym_goto;
   sym_labeledStatement; sym__statement]; STATE 15874 [sym_ifTr; sym_ifElseTr; sym_whileTr;
   sym_repeatTr; sym_forTr; sym_foreachTr; sym_tryTr; sym_caseTr]; STATE 15738 [sym_blockTr];
   STATE 15874 [sym_asmTr; sym_withTr; sym_raiseTr; sym_statementTr; sym_gotoTr;
   sym_labeledStatementTr; sym__statementTr]; STATE 13492 [sym_assignment];
   STATE 11905 [sym_varAssignDef]; STATE 13492 [sym_varDef; sym_constDef];
   STATE 1282 [sym_label]; STATE 7925 [sym__expr; sym_exprConditional]; STATE 7363 [sym__ref;
   sym_lambda; sym_inherited; sym_exprDot; sym_exprDeref; sym_exprAs; sym_exprTpl;
   sym_exprSubscript; sym_exprCall]; STATE 7925 [sym_exprBinary; sym_exprUnary];
   STATE 7363 [sym_exprParens; sym_exprBrackets; sym__literal; sym_literalString];
   STATE 6967 [sym__literalString; sym_literalChar]; STATE 7363 [sym_literalNumber];
   STATE 7660 [sym__literalInt; sym__literalFloat]; STATE 6967 [aux_sym_literalString_repeat1];
   ACTIONS 10226 [anon_sym_SEMI]; ACTIONS 9986 [anon_sym_LBRACK]; ACTIONS 9988 [anon_sym_LPAREN];
   ACTIONS 9990 [aux_sym__literalString_token1]; ACTIONS 9992 [anon_sym_POUND];
   ACTIONS 9994 [aux_sym__literalInt_token1]; ACTIONS 9996 [aux_sym__literalInt_token2;
   aux_sym__literalInt_token3]; ACTIONS 9994 [aux_sym__literalFloat_token1];
   ACTIONS 9998 [sym_kAdd; sym_kSub]; ACTIONS 10000 [sym_kAt]; ACTIONS 10002 [sym_kTrue;
   sym_kFalse]; ACTIONS 10004 [sym_labelNumber]; ACTIONS 3 [sym__space];
   ACTIONS 5 [sym_ppDirective]; ACTIONS 3 [sym_comment]; ACTIONS 10002 [sym_ppFragmentExpr];
   ACTIONS 9990 [sym__literalStringMultiline]; ACTIONS 10006 [sym_identifier];
   ACTIONS 10008 [sym_kSpecialize]; ACTIONS 10108 [sym_kAsm]; ACTIONS 10110 [sym_kBegin];
   ACTIONS 10112 [sym_kCase]; ACTIONS 10016 [sym_kConst]; ACTIONS 3272 [sym_kElse];
   ACTIONS 10116 [sym_kFor]; ACTIONS 10020 [sym_kFunction]; ACTIONS 10118 [sym_kGoto];
   ACTIONS 10228 [sym_kIf]; ACTIONS 10026 [sym_kInherited]; ACTIONS 10002 [sym_kNil];
   ACTIONS 10000 [sym_kNot]; ACTIONS 10020 [sym_kProcedure]; ACTIONS 10122 [sym_kRaise];
   ACTIONS 10124 [sym_kRepeat]; ACTIONS 10032 [sym_kString]; ACTIONS 10126 [sym_kTry];
   ACTIONS 10036 [sym_kVar]; ACTIONS 10128 [sym_kWhile]; ACTIONS 10130 [sym_kWith]].

(** State 1057. *)
Definition ts_parse_table_1057 : parse_row :=
  [STATE 14637 [sym_if]; STATE 14136 [sym_ifElse; sym_while; sym_repeat; sym_for; sym_foreach;
   sym_try; sym_case; sym_block; sym_asm; sym_with; sym_raise; sym_statement; sym_goto;
   sym_labeledStatement; sym__statement]; STATE 15916 [sym_ifTr; sym_ifElseTr; sym_whileTr;
   sym_repeatTr; sym_forTr; sym_foreachTr; sym_tryTr; sym_caseTr]; STATE 15738 [sym_blockTr];
   STATE 15916 [sym_asmTr; sym_withTr; sym_raiseTr; sym_statementTr; sym_gotoTr;
   sym_labeledStatementTr; sym__statementTr]; STATE 13492 [sym_assignment];
   STATE 11905 [sym_varAssignDef]; STATE 13492 [sym_varDef; sym_constDef];
   STATE 1282 [sym_label]; STATE 7925 [sym__expr; sym_exprConditional]; STATE 7363 [sym__ref;
   sym_lambda; sym_inherited; sym_exprDot; sym_exprDeref; sym_exprAs; sym_exprTpl;
   sym_exprSubscript; sym_exprCall]; STATE 7925 [sym_exprBinary; sym_exprUnary];
   STATE 7363 [sym_exprParens; sym_exprBrackets; sym__literal; sym_literalString];
   STATE 6967 [sym__literalString; sym_literalChar]; STATE 7363 [sym_literalNumber];
   STATE 7660 [sym__literalInt; sym__literalFloat]; STATE 6967 [aux_sym_literalString_repeat1];
   ACTIONS 10230 [anon_sym_SEMI]; ACTIONS 9986 [anon_sym_LBRACK]; ACTIONS 9988 [anon_sym_LPAREN];
   ACTIONS 9990 [aux_sym__literalString_token1]; ACTIONS 9992 [anon_sym_POUND];
   ACTIONS 9994 [aux_sym__literalInt_token1]; ACTIONS 9996 [aux_sym__literalInt_token2;
   aux_sym__literalInt_token3]; ACTIONS 9994 [aux_sym__literalFloat_token1];
   ACTIONS 9998 [sym_kAdd; sym_kSub]; ACTIONS 10000 [sym_kAt]; ACTIONS 10002 [sym_kTrue;
   sym_kFalse]; ACTIONS 10004 [sym_labelNumber]; ACTIONS 3 [sym__space];
   ACTIONS 5 [sym_ppDirective]; ACTIONS 3 [sym_comment]; ACTIONS 10002 [sym_ppFragmentExpr];
   ACTIONS 9990 [sym__literalStringMultiline]; ACTIONS 10006 [sym_identifier];
   ACTIONS 10008 [sym_kSpecialize]; ACTIONS 10108 [sym_kAsm]; ACTIONS 10110 [sym_kBegin];
   ACTIONS 10112 [sym_kCase]; ACTIONS 10016 [sym_kConst]; ACTIONS 3278 [sym_kElse];
   ACTIONS 10116 [sym_kFor]; ACTIONS 10020 [sym_kFunction]; ACTIONS 10118 [sym_kGoto];
   ACTIONS 10228 [sym_kIf]; ACTIONS 10026 [sym_kInherited]; ACTIONS 10002 [sym_kNil];
   ACTIONS 10000 [sym_kNot]; ACTIONS 10020 [sym_kProcedure]; ACTIONS 10122 [sym_kRaise];
   ACTIONS 10124 [sym_kRepeat]; ACTIONS 10032 [sym_kString]; ACTIONS 10126 [sym_kTry];
   ACTIONS 10036 [sym_kVar]; ACTIONS 10128 [sym_kWhile]; ACTIONS 10130 [sym_kWith]].

(** State 1058. *)
Definition ts_parse_table_1058 : parse_row :=
  [STATE 14637 [sym_if]; STATE 14169 [sym_ifElse; sym_while; sym_repeat; sym_for; sym_foreach;
   sym_try; sym_case; sym_block; sym_asm; sym_with; sym_raise; sym_statement; sym_goto;
   sym_labeledStatement; sym__statement]; STATE 15171 [sym_ifTr; sym_ifElseTr; sym_whileTr;
   sym_repeatTr; sym_forTr; sym_foreachTr; sym_tryTr; sym_caseTr]; STATE 15738 [sym_blockTr];
   STATE 15171 [sym_asmTr; sym_withTr; sym_raiseTr; sym_statementTr; sym_gotoTr;
   sym_labeledStatementTr; sym__statementTr]; STATE 13492 [sym_assignment];
   STATE 11905 [sym_varAssignDef]; STATE 13492 [sym_varDef; sym_constDef];
   STATE 1282 [sym_label]; STATE 7925 [sym__expr; sym_exprConditional]; STATE 7363 [sym__ref;
   sym_lambda; sym_inherited; sym_exprDot; sym_exprDeref; sym_exprAs; sym_exprTpl;
   sym_exprSubscript; sym_exprCall]; STATE 7925 [sym_exprBinary; sym_exprUnary];
   STATE 7363 [sym_exprParens; sym_exprBrackets; sym__literal; sym_literalString];
   STATE 6967 [sym__literalString; sym_literalChar]; STATE 7363 [sym_literalNumber];
   STATE 7660 [sym__literalInt; sym__literalFloat]; STATE 6967 [aux_sym_literalString_repeat1];
   ACTIONS 10232 [anon_sym_SEMI]; ACTIONS 9986 [anon_sym_LBRACK]; ACTIONS 9988 [anon_sym_LPAREN];
   ACTIONS 9990 [aux_sym__literalString_token1]; ACTIONS 9992 [anon_sym_POUND];
   ACTIONS 9994 [aux_sym__literalInt_token1]; ACTIONS 9996 [aux_sym__literalInt_token2;
   aux_sym__literalInt_token3]; ACTIONS 9994 [aux_sym__literalFloat_token1];
   ACTIONS 9998 [sym_kAdd; sym_kSub]; ACTIONS 10000 [sym_kAt]; ACTIONS 10002 [sym_kTrue;
   sym_kFalse]; ACTIONS 10004 [sym_labelNumber]; ACTIONS 3 [sym__space];
   ACTIONS 5 [sym_ppDirective]; ACTIONS 3 [sym_comment]; ACTIONS 10002 [sym_ppFragmentExpr];
   ACTIONS 9990 [sym__literalStringMultiline]; ACTIONS 10006 [sym_identifier];
   ACTIONS 10008 [sym_kSpecialize]; ACTIONS 10108 [sym_kAsm]; ACTIONS 10110 [sym_kBegin];
   ACTIONS 10112 [sym_kCase]; ACTIONS 10016 [sym_kConst]; ACTIONS 3282 [sym_kElse];
   ACTIONS 10116 [sym_kFor]; ACTIONS 10020 [sym_kFunction]; ACTIONS 10118 [sym_kGoto];
   ACTIONS 10228 [sym_kIf]; ACTIONS 10026 [sym_kInherited]; ACTIONS 10002 [sym_kNil];
   ACTIONS 10000 [sym_kNot]; ACTIONS 10020 [sym_kProcedure]; ACTIONS 10122 [sym_kRaise];
   ACTIONS 10124 [sym_kRepeat]; ACTIONS 10032 [sym_kString]; ACTIONS 10126 [sym_kTry];
   ACTIONS 10036 [sym_kVar]; ACTIONS 10128 [sym_kWhile]; ACTIONS 10130 [sym_kWith]].

(** State 1059. *)
Definition ts_parse_table_1059 : parse_row :=
  [STATE 14637 [sym_if]; STATE 14193 [sym_ifElse; sym_while; sym_repeat; sym_for; sym_foreach;
   sym_try; sym_case; sym_block; sym_asm; sym_with; sym_raise; sym_statement; sym_goto];
   STATE 14192 [sym_labeledStatement]; STATE 14193 [sym__statement]; STATE 14171 [sym_ifTr;
   sym_ifElseTr; sym_whileTr; sym_repeatTr; sym_forTr; sym_foreachTr; sym_tryTr; sym_caseTr];
   STATE 15738 [sym_blockTr]; STATE 14171 [sym_asmTr; sym_withTr; sym_raiseTr; sym_statementTr;
   sym_gotoTr]; STATE 14168 [sym_labeledStatementTr]; STATE 14171 [sym__statementTr];
   STATE 13492 [sym_assignment]; STATE 11905 [sym_varAssignDef]; STATE 13492 [sym_varDef;
   sym_constDef]; STATE 1282 [sym_label]; STATE 7925 [sym__expr; sym_exprConditional];
   STATE 7363 [sym__ref; sym_lambda; sym_inherited; sym_exprDot; sym_exprDeref; sym_exprAs;
   sym_exprTpl; sym_exprSubscript; sym_exprCall]; STATE 7925 [sym_exprBinary; sym_exprUnary];
   STATE 7363 [sym_exprParens; sym_exprBrackets; sym__literal; sym_literalString];
   STATE 6967 [sym__literalString; sym_literalChar]; STATE 7363 [sym_literalNumber];
   STATE 7660 [sym__literalInt; sym__literalFloat]; STATE 6967 [aux_sym_literalString_repeat1];
   ACTIONS 10234 [anon_sym_SEMI]; ACTIONS 9986 [anon_sym_LBRACK]; ACTIONS 9988 [anon_sym_LPAREN];
   ACTIONS 9990 [aux_sym__literalString_token1]; ACTIONS 9992 [anon_sym_POUND];
   ACTIONS 9994 [aux_sym__literalInt_token1]; ACTIONS 9996 [aux_sym__literalInt_token2;
   aux_sym__literalInt_token3]; ACTIONS 9994 [aux_sym__literalFloat_token1];
   ACTIONS 9998 [sym_kAdd; sym_kSub]; ACTIONS 10000 [sym_kAt]; ACTIONS 10002 [sym_kTrue;
   sym_kFalse]; ACTIONS 10004 [sym_labelNumber]; ACTIONS 3 [sym__space];
   ACTIONS 5 [sym_ppDirective]; ACTIONS 3 [sym_comment]; ACTIONS 10002 [sym_ppFragmentExpr];
   ACTIONS 9990 [sym__literalStringMultiline]; ACTIONS 10006 [sym_identifier];
   ACTIONS 10008 [sym_kSpecialize]; ACTIONS 10108 [sym_kAsm]; ACTIONS 10110 [sym_kBegin];
   ACTIONS 10112 [sym_kCase]; ACTIONS 10016 [sym_kConst]; ACTIONS 3286 [sym_kElse];
   ACTIONS 10116 [sym_kFor]; ACTIONS 10020 [sym_kFunction]; ACTIONS 10118 [sym_kGoto];
   ACTIONS 10228 [sym_kIf]; ACTIONS 10026 [sym_kInherited]; ACTIONS 10002 [sym_kNil];
   ACTIONS 10000 [sym_kNot]; ACTIONS 10020 [sym_kProcedure]; ACTIONS 10122 [sym_kRaise];
   ACTIONS 10124 [sym_kRepeat]; ACTIONS 10032 [sym_kString]; ACTIONS 10126 [sym_kTry];
   ACTIONS 10036 [sym_kVar]; ACTIONS 10128 [sym_kWhile]; ACTIONS 10130 [sym_kWith]].

(** State 1060. *)
Definition ts_parse_table_1060 : parse_row :=
  [STATE 9222 [sym_if]; STATE 9358 [sym_ifElse; sym_while; sym_repeat; sym_for; sym_foreach;
   sym_try; sym_case; sym_block; sym_asm; sym_with; sym_raise; sym_statement; sym_goto;
   sym_labeledStatement; sym__statement]; STATE 14934 [sym_ifTr; sym_ifElseTr; sym_whileTr;
   sym_repeatTr; sym_forTr; sym_foreachTr; sym_tryTr; sym_caseTr]; STATE 15738 [sym_blockTr];
   STATE 14934 [sym_asmTr; sym_withTr; sym_raiseTr; sym_statementTr; sym_gotoTr;
   sym_labeledStatementTr; sym__statementTr]; STATE 13921 [sym_assignment];
   STATE 11905 [sym_varAssignDef]; STATE 13921 [sym_varDef; sym_constDef];
   STATE 1283 [sym_label]; STATE 8063 [sym__expr; sym_exprConditional]; STATE 7363 [sym__ref;
   sym_lambda; sym_inherited; sym_exprDot; sym_exprDeref; sym_exprAs; sym_exprTpl;
   sym_exprSubscript; sym_exprCall]; STATE 8063 [sym_exprBinary; sym_exprUnary];
   STATE 7363 [sym_exprParens; sym_exprBrackets; sym__literal; sym_literalString];
   STATE 6967 [sym__literalString; sym_literalChar]; STATE 7363 [sym_literalNumber];
   STATE 7660 [sym__literalInt; sym__literalFloat]; STATE 6967 [aux_sym_literalString_repeat1];
   ACTIONS 9318 [anon_sym_SEMI]; ACTIONS 9986 [anon_sym_LBRACK]; ACTIONS 9988 [anon_sym_LPAREN];
   ACTIONS 9990 [aux_sym__literalString_token1]; ACTIONS 9992 [anon_sym_POUND];
   ACTIONS 9994 [aux_sym__literalInt_token1]; ACTIONS 9996 [aux_sym__literalInt_token2;
   aux_sym__literalInt_token3]; ACTIONS 9994 [aux_sym__literalFloat_token1];
   ACTIONS 9998 [sym_kAdd; sym_kSub]; ACTIONS 10000 [sym_kAt]; ACTIONS 10002 [sym_kTrue;
   sym_kFalse]; ACTIONS 10004 [sym_labelNumber]; ACTIONS 3 [sym__space];
   ACTIONS 5 [sym_ppDirective]; ACTIONS 3 [sym_comment]; ACTIONS 10002 [sym_ppFragmentExpr];
   ACTIONS 9990 [sym__literalStringMultiline]; ACTIONS 10006 [sym_identifier];
   ACTIONS 10008 [sym_kSpecialize]; ACTIONS 10236 [sym_kAsm]; ACTIONS 10238 [sym_kBegin];
   ACTIONS 10240 [sym_kCase]; ACTIONS 10016 [sym_kConst]; ACTIONS 10242 [sym_kElse];
   ACTIONS 10244 [sym_kFor]; ACTIONS 10020 [sym_kFunction]; ACTIONS 10246 [sym_kGoto];
   ACTIONS 10248 [sym_kIf]; ACTIONS 10026 [sym_kInherited]; ACTIONS 10002 [sym_kNil];
   ACTIONS 10000 [sym_kNot]; ACTIONS 10020 [sym_kProcedure]; ACTIONS 10250 [sym_kRaise];
   ACTIONS 10252 [sym_kRepeat]; ACTIONS 10032 [sym_kString]; ACTIONS 10254 [sym_kTry];
   ACTIONS 10036 [sym_kVar]; ACTIONS 10256 [sym_kWhile]; ACTIONS 10258 [sym_kWith]].

(** State 1061. *)
Definition ts_parse_table_1061 : parse_row :=
  [STATE 14637 [sym_if]; STATE 14201 [sym_ifElse; sym_while; sym_repeat; sym_for; sym_foreach;
   sym_try; sym_case; sym_block; sym_asm; sym_with; sym_raise; sym_statement; sym_goto;
   sym_labeledStatement; sym__statement]; STATE 15904 [sym_ifTr; sym_ifElseTr; sym_whileTr;
   sym_repeatTr; sym_forTr; sym_foreachTr; sym_tryTr; sym_caseTr]; STATE 15738 [sym_blockTr];
   STATE 15904 [sym_asmTr; sym_withTr; sym_raiseTr; sym_statementTr; sym_gotoTr;
   sym_labeledStatementTr; sym__statementTr]; STATE 13492 [sym_assignment];
   STATE 11905 [sym_varAssignDef]; STATE 13492 [sym_varDef; sym_constDef];
   STATE 1282 [sym_label]; STATE 7925 [sym__expr; sym_exprConditional]; STATE 7363 [sym__ref;
   sym_lambda; sym_inherited; sym_exprDot; sym_exprDeref; sym_exprAs; sym_exprTpl;
   sym_exprSubscript; sym_exprCall]; STATE 7925 [sym_exprBinary; sym_exprUnary];
   STATE 7363 [sym_exprParens; sym_exprBrackets; sym__literal; sym_literalString];
   STATE 6967 [sym__literalString; sym_literalChar]; STATE 7363 [sym_literalNumber];
   STATE 7660 [sym__literalInt; sym__literalFloat]; STATE 6967 [aux_sym_literalString_repeat1];
   ACTIONS 10260 [anon_sym_SEMI]; ACTIONS 9986 [anon_sym_LBRACK]; ACTIONS 9988 [anon_sym_LPAREN];
   ACTIONS 9990 [aux_sym__literalString_token1]; ACTIONS 9992 [anon_sym_POUND];
   ACTIONS 9994 [aux_sym__literalInt_token1]; ACTIONS 9996 [aux_sym__literalInt_token2;
   aux_sym__literalInt_token3]; ACTIONS 9994 [aux_sym__literalFloat_token1];
   ACTIONS 9998 [sym_kAdd; sym_kSub]; ACTIONS 10000 [sym_kAt]; ACTIONS 10002 [sym_kTrue;
   sym_kFalse]; ACTIONS 10004 [sym_labelNumber]; ACTIONS 3 [sym__space];
   ACTIONS 5 [sym_ppDirective]; ACTIONS 3 [sym_comment]; ACTIONS 10002 [sym_ppFragmentExpr];
   ACTIONS 9990 [sym__literalStringMultiline]; ACTIONS 10006 [sym_identifier];
   ACTIONS 10008 [sym_kSpecialize]; ACTIONS 10108 [sym_kAsm]; ACTIONS 10110 [sym_kBegin];
   ACTIONS 10112 [sym_kCase]; ACTIONS 10016 [sym_kConst]; ACTIONS 3290 [sym_kElse];
   ACTIONS 10116 [sym_kFor]; ACTIONS 10020 [sym_kFunction]; ACTIONS 10118 [sym_kGoto];
   ACTIONS 10228 [sym_kIf]; ACTIONS 10026 [sym_kInherited]; ACTIONS 10002 [sym_kNil];
   ACTIONS 10000 [sym_kNot]; ACTIONS 10020 [sym_kProcedure]; ACTIONS 10122 [sym_kRaise];
   ACTIONS 10124 [sym_kRepeat]; ACTIONS 10032 [sym_kString]; ACTIONS 10126 [sym_kTry];
   ACTIONS 10036 [sym_kVar]; ACTIONS 10128 [sym_kWhile]; ACTIONS 10130 [sym_kWith]].

(** State 1062. *)
Definition ts_parse_table_1062 : parse_row :=
  [STATE 14637 [sym_if]; STATE 14202 [sym_ifElse; sym_while; sym_repeat; sym_for; sym_foreach;
   sym_try; sym_case; sym_block; sym_asm; sym_with; sym_raise; sym_statement; sym_goto;
   sym_labeledStatement; sym__statement]; STATE 15932 [sym_ifTr; sym_ifElseTr; sym_whileTr;
   sym_repeatTr; sym_forTr; sym_foreachTr; sym_tryTr; sym_caseTr]; STATE 15738 [sym_blockTr];
   STATE 15932 [sym_asmTr; sym_withTr; sym_raiseTr; sym_statementTr; sym_gotoTr;
   sym_labeledStatementTr; sym__statementTr]; STATE 13492 [sym_assignment];
   STATE 11905 [sym_varAssignDef]; STATE 13492 [sym_varDef; sym_constDef];
   STATE 1282 [sym_label]; STATE 7925 [sym__expr; sym_exprConditional]; STATE 7363 [sym__ref;
   sym_lambda; sym_inherited; sym_exprDot; sym_exprDeref; sym_exprAs; sym_exprTpl;
   sym_exprSubscript; sym_exprCall]; STATE 7925 [sym_exprBinary; sym_exprUnary];
   STATE 7363 [sym_exprParens; sym_exprBrackets; sym__literal; sym_literalString];
   STATE 6967 [sym__literalString; sym_literalChar]; STATE 7363 [sym_literalNumber];
   STATE 7660 [sym__literalInt; sym__literalFloat]; STATE 6967 [aux_sym_literalString_repeat1];
   ACTIONS 10262 [anon_sym_SEMI]; ACTIONS 9986 [anon_sym_LBRACK]; ACTIONS 9988 [anon_sym_LPAREN];
   ACTIONS 9990 [aux_sym__literalString_token1]; ACTIONS 9992 [anon_sym_POUND];
   ACTIONS 9994 [aux_sym__literalInt_token1]; ACTIONS 9996 [aux_sym__literalInt_token2;
   aux_sym__literalInt_token3]; ACTIONS 9994 [aux_sym__literalFloat_token1];
   ACTIONS 9998 [sym_kAdd; sym_kSub]; ACTIONS 10000 [sym_kAt]; ACTIONS 10002 [sym_kTrue;
   sym_kFalse]; ACTIONS 10004 [sym_labelNumber]; ACTIONS 3 [sym__space];
   ACTIONS 5 [sym_ppDirective]; ACTIONS 3 [sym_comment]; ACTIONS 10002 [sym_ppFragmentExpr];
   ACTIONS 9990 [sym__literalStringMultiline]; ACTIONS 10006 [sym_identifier];
   ACTIONS 10008 [sym_kSpecialize]; ACTIONS 10108 [sym_kAsm]; ACTIONS 10110 [sym_kBegin];
   ACTIONS 10112 [sym_kCase]; ACTIONS 10016 [sym_kConst]; ACTIONS 3296 [sym_kElse];
   ACTIONS 10116 [sym_kFor]; ACTIONS 10020 [sym_kFunction]; ACTIONS 10118 [sym_kGoto];
   ACTIONS 10228 [sym_kIf]; ACTIONS 10026 [sym_kInherited]; ACTIONS 10002 [sym_kNil];
   ACTIONS 10000 [sym_kNot]; ACTIONS 10020 [sym_kProcedure]; ACTIONS 10122 [sym_kRaise];
   ACTIONS 10124 [sym_kRepeat]; ACTIONS 10032 [sym_kString]; ACTIONS 10126 [sym_kTry];
   ACTIONS 10036 [sym_kVar]; ACTIONS 10128 [sym_kWhile]; ACTIONS 10130 [sym_kWith]].

(** State 1063. *)
Definition ts_parse_table_1063 : parse_row :=
  [STATE 14637 [sym_if]; STATE 14219 [sym_ifElse; sym_while; sym_repeat; sym_for; sym_foreach;
   sym_try; sym_case; sym_block; sym_asm; sym_with; sym_raise; sym_statement; sym_goto;
   sym_labeledStatement; sym__statement]; STATE 15995 [sym_ifTr; sym_ifElseTr; sym_whileTr;
   sym_repeatTr; sym_forTr; sym_foreachTr; sym_tryTr; sym_caseTr]; STATE 15738 [sym_blockTr];
   STATE 15995 [sym_asmTr; sym_withTr; sym_raiseTr; sym_statementTr; sym_gotoTr;
   sym_labeledStatementTr; sym__statementTr]; STATE 13492 [sym_assignment];
   STATE 11905 [sym_varAssignDef]; STATE 13492 [sym_varDef; sym_constDef];
   STATE 1282 [sym_label]; STATE 7925 [sym__expr; sym_exprConditional]; STATE 7363 [sym__ref;
   sym_lambda; sym_inherited; sym_exprDot; sym_exprDeref; sym_exprAs; sym_exprTpl;
   sym_exprSubscript; sym_exprCall]; STATE 7925 [sym_exprBinary; sym_exprUnary];
   STATE 7363 [sym_exprParens; sym_exprBrackets; sym__literal; sym_literalString];
   STATE 6967 [sym__literalString; sym_literalChar]; STATE 7363 [sym_literalNumber];
   STATE 7660 [sym__literalInt; sym__literalFloat]; STATE 6967 [aux_sym_literalString_repeat1];
   ACTIONS 10264 [anon_sym_SEMI]; ACTIONS 9986 [anon_sym_LBRACK]; ACTIONS 9988 [anon_sym_LPAREN];
   ACTIONS 9990 [aux_sym__literalString_token1]; ACTIONS 9992 [anon_sym_POUND];
   ACTIONS 9994 [aux_sym__literalInt_token1]; ACTIONS 9996 [aux_sym__literalInt_token2;
   aux_sym__literalInt_token3]; ACTIONS 9994 [aux_sym__literalFloat_token1];
   ACTIONS 9998 [sym_kAdd; sym_kSub]; ACTIONS 10000 [sym_kAt]; ACTIONS 10002 [sym_kTrue;
   sym_kFalse]; ACTIONS 10004 [sym_labelNumber]; ACTIONS 3 [sym__space];
   ACTIONS 5 [sym_ppDirective]; ACTIONS 3 [sym_comment]; ACTIONS 10002 [sym_ppFragmentExpr];
   ACTIONS 9990 [sym__literalStringMultiline]; ACTIONS 10006 [sym_identifier];
   ACTIONS 10008 [sym_kSpecialize]; ACTIONS 10108 [sym_kAsm]; ACTIONS 10110 [sym_kBegin];
   ACTIONS 10112 [sym_kCase]; ACTIONS 10016 [sym_kConst]; ACTIONS 3304 [sym_kElse];
   ACTIONS 10116 [sym_kFor]; ACTIONS 10020 [sym_kFunction]; ACTIONS 10118 [sym_kGoto];
   ACTIONS 10228 [sym_kIf]; ACTIONS 10026 [sym_kInherited]; ACTIONS 10002 [sym_kNil];
   ACTIONS 10000 [sym_kNot]; ACTIONS 10020 [sym_kProcedure]; ACTIONS 10122 [sym_kRaise];
   ACTIONS 10124 [sym_kRepeat]; ACTIONS 10032 [sym_kString]; ACTIONS 10126 [sym_kTry];
   ACTIONS 10036 [sym_kVar]; ACTIONS 10128 [sym_kWhile]; ACTIONS 10130 [sym_kWith]].

(** State 1064. *)
Definition ts_parse_table_1064 : parse_row :=
  [STATE 6463 [sym_if]; STATE 6489 [sym_ifElse; sym_while; sym_repeat; sym_for; sym_foreach;
   sym_try; sym_case; sym_block; sym_asm; sym_with; sym_raise; sym_statement; sym_goto;
   sym_labeledStatement; sym__statement]; STATE 15995 [sym_ifTr; sym_ifElseTr; sym_whileTr;
   sym_repeatTr; sym_forTr; sym_foreachTr; sym_tryTr; sym_caseTr]; STATE 15738 [sym_blockTr];
   STATE 15995 [sym_asmTr; sym_withTr; sym_raiseTr; sym_statementTr; sym_gotoTr;
   sym_labeledStatementTr; sym__statementTr]; STATE 14065 [sym_assignment];
   STATE 11905 [sym_varAssignDef]; STATE 14065 [sym_varDef; sym_constDef];
   STATE 1211 [sym_label]; STATE 8094 [sym__expr; sym_exprConditional]; STATE 7363 [sym__ref;
   sym_lambda; sym_inherited; sym_exprDot; sym_exprDeref; sym_exprAs; sym_exprTpl;
   sym_exprSubscript; sym_exprCall]; STATE 8094 [sym_exprBinary; sym_exprUnary];
   STATE 7363 [sym_exprParens; sym_exprBrackets; sym__literal; sym_literalString];
   STATE 6967 [sym__literalString; sym_literalChar]; STATE 7363 [sym_literalNumber];
   STATE 7660 [sym__literalInt; sym__literalFloat]; STATE 6967 [aux_sym_literalString_repeat1];
   ACTIONS 10266 [anon_sym_SEMI]; ACTIONS 9986 [anon_sym_LBRACK]; ACTIONS 9988 [anon_sym_LPAREN];
   ACTIONS 9990 [aux_sym__literalString_token1]; ACTIONS 9992 [anon_sym_POUND];
   ACTIONS 9994 [aux_sym__literalInt_token1]; ACTIONS 9996 [aux_sym__literalInt_token2;
   aux_sym__literalInt_token3]; ACTIONS 9994 [aux_sym__literalFloat_token1];
   ACTIONS 9998 [sym_kAdd; sym_kSub]; ACTIONS 10000 [sym_kAt]; ACTIONS 10002 [sym_kTrue;
   sym_kFalse]; ACTIONS 10004 [sym_labelNumber]; ACTIONS 3 [sym__space];
   ACTIONS 5 [sym_ppDirective]; ACTIONS 3 [sym_comment]; ACTIONS 10002 [sym_ppFragmentExpr];
   ACTIONS 9990 [sym__literalStringMultiline]; ACTIONS 10006 [sym_identifier];
   ACTIONS 10008 [sym_kSpecialize]; ACTIONS 10068 [sym_kAsm]; ACTIONS 10070 [sym_kBegin];
   ACTIONS 10072 [sym_kCase]; ACTIONS 10016 [sym_kConst]; ACTIONS 3304 [sym_kElse];
   ACTIONS 10074 [sym_kFor]; ACTIONS 10020 [sym_kFunction]; ACTIONS 10076 [sym_kGoto];
   ACTIONS 10078 [sym_kIf]; ACTIONS 10026 [sym_kInherited]; ACTIONS 10002 [sym_kNil];
   ACTIONS 10000 [sym_kNot]; ACTIONS 10020 [sym_kProcedure]; ACTIONS 10080 [sym_kRaise];
   ACTIONS 10082 [sym_kRepeat]; ACTIONS 10032 [sym_kString]; ACTIONS 10084 [sym_kTry];
   ACTIONS 10036 [sym_kVar]; ACTIONS 10086 [sym_kWhile]; ACTIONS 10088 [sym_kWith]].

(** State 1065. *)
Definition ts_parse_table_1065 : parse_row :=
  [STATE 13920 [sym_if]; STATE 14073 [sym_ifElse; sym_while; sym_repeat; sym_for; sym_foreach;
   sym_try; sym_case; sym_block; sym_asm; sym_with; sym_raise; sym_statement; sym_goto;
   sym_labeledStatement; sym__statement]; STATE 15874 [sym_ifTr; sym_ifElseTr; sym_whileTr;
   sym_repeatTr; sym_forTr; sym_foreachTr; sym_tryTr; sym_caseTr]; STATE 15738 [sym_blockTr];
   STATE 15874 [sym_asmTr; sym_withTr; sym_raiseTr; sym_statementTr; sym_gotoTr;
   sym_labeledStatementTr; sym__statementTr]; STATE 13502 [sym_assignment];
   STATE 11905 [sym_varAssignDef]; STATE 13502 [sym_varDef; sym_constDef];
   STATE 1228 [sym_label]; STATE 7994 [sym__expr; sym_exprConditional]; STATE 7363 [sym__ref;
   sym_lambda; sym_inherited; sym_exprDot; sym_exprDeref; sym_exprAs; sym_exprTpl;
   sym_exprSubscript; sym_exprCall]; STATE 7994 [sym_exprBinary; sym_exprUnary];
   STATE 7363 [sym_exprParens; sym_exprBrackets; sym__literal; sym_literalString];
   STATE 6967 [sym__literalString; sym_literalChar]; STATE 7363 [sym_literalNumber];
   STATE 7660 [sym__literalInt; sym__literalFloat]; STATE 6967 [aux_sym_literalString_repeat1];
   ACTIONS 10268 [anon_sym_SEMI]; ACTIONS 9986 [anon_sym_LBRACK]; ACTIONS 9988 [anon_sym_LPAREN];
   ACTIONS 9990 [aux_sym__literalString_token1]; ACTIONS 9992 [anon_sym_POUND];
   ACTIONS 9994 [aux_sym__literalInt_token1]; ACTIONS 9996 [aux_sym__literalInt_token2;
   aux_sym__literalInt_token3]; ACTIONS 9994 [aux_sym__literalFloat_token1];
   ACTIONS 9998 [sym_kAdd; sym_kSub]; ACTIONS 10000 [sym_kAt]; ACTIONS 10002 [sym_kTrue;
   sym_kFalse]; ACTIONS 10004 [sym_labelNumber]; ACTIONS 3 [sym__space];
   ACTIONS 5 [sym_ppDirective]; ACTIONS 3 [sym_comment]; ACTIONS 10002 [sym_ppFragmentExpr];
   ACTIONS 9990 [sym__literalStringMultiline]; ACTIONS 10006 [sym_identifier];
   ACTIONS 10008 [sym_kSpecialize]; ACTIONS 10162 [sym_kAsm]; ACTIONS 10164 [sym_kBegin];
   ACTIONS 10166 [sym_kCase]; ACTIONS 10016 [sym_kConst]; ACTIONS 3272 [sym_kElse];
   ACTIONS 10170 [sym_kFor]; ACTIONS 10020 [sym_kFunction]; ACTIONS 10172 [sym_kGoto];
   ACTIONS 10174 [sym_kIf]; ACTIONS 10026 [sym_kInherited]; ACTIONS 10002 [sym_kNil];
   ACTIONS 10000 [sym_kNot]; ACTIONS 10020 [sym_kProcedure]; ACTIONS 10176 [sym_kRaise];
   ACTIONS 10178 [sym_kRepeat]; ACTIONS 10032 [sym_kString]; ACTIONS 10180 [sym_kTry];
   ACTIONS 10036 [sym_kVar]; ACTIONS 10182 [sym_kWhile]; ACTIONS 10184 [sym_kWith]].

(** State 1066. *)
Definition ts_parse_table_1066 : parse_row :=
  [STATE 6273 [sym_if]; STATE 6324 [sym_ifElse; sym_while; sym_repeat; sym_for; sym_foreach;
   sym_try; sym_case; sym_block; sym_asm; sym_with; sym_raise; sym_statement; sym_goto];
   STATE 6322 [sym_labeledStatement]; STATE 6324 [sym__statement]; STATE 15464 [sym_ifTr;
   sym_ifElseTr; sym_whileTr; sym_repeatTr; sym_forTr; sym_foreachTr; sym_tryTr; sym_caseTr];
   STATE 14967 [sym_blockTr]; STATE 15464 [sym_asmTr; sym_withTr; sym_raiseTr; sym_statementTr;
   sym_gotoTr]; STATE 14770 [sym_labeledStatementTr]; STATE 15464 [sym__statementTr];
   STATE 13420 [sym_assignment]; STATE 11684 [sym_varAssignDef]; STATE 13420 [sym_varDef;
   sym_constDef]; STATE 1260 [sym_label]; STATE 8128 [sym__expr; sym_exprConditional];
   STATE 7533 [sym__ref; sym_lambda; sym_inherited; sym_exprDot; sym_exprDeref; sym_exprAs;
   sym_exprTpl; sym_exprSubscript; sym_exprCall]; STATE 8128 [sym_exprBinary; sym_exprUnary];
   STATE 7533 [sym_exprParens; sym_exprBrackets; sym__literal; sym_literalString];
   STATE 6915 [sym__literalString; sym_literalChar]; STATE 7533 [sym_literalNumber];
   STATE 7570 [sym__literalInt; sym__literalFloat]; STATE 6915 [aux_sym_literalString_repeat1];
   ACTIONS 9902 [anon_sym_SEMI]; ACTIONS 927 [anon_sym_LBRACK]; ACTIONS 929 [anon_sym_LPAREN];
   ACTIONS 931 [aux_sym__literalString_token1]; ACTIONS 933 [anon_sym_POUND];
   ACTIONS 935 [aux_sym__literalInt_token1]; ACTIONS 937 [aux_sym__literalInt_token2;
   aux_sym__literalInt_token3]; ACTIONS 935 [aux_sym__literalFloat_token1];
   ACTIONS 939 [sym_kAdd; sym_kSub]; ACTIONS 941 [sym_kAt]; ACTIONS 943 [sym_kTrue; sym_kFalse];
   ACTIONS 10188 [sym_labelNumber]; ACTIONS 3 [sym__space]; ACTIONS 5 [sym_ppDirective];
   ACTIONS 3 [sym_comment]; ACTIONS 943 [sym_ppFragmentExpr];
   ACTIONS 931 [sym__literalStringMultiline]; ACTIONS 10190 [sym_identifier];
   ACTIONS 949 [sym_kSpecialize]; ACTIONS 951 [sym_kAsm]; ACTIONS 953 [sym_kBegin];
   ACTIONS 955 [sym_kCase]; ACTIONS 957 [sym_kConst]; ACTIONS 959 [sym_kFor];
   ACTIONS 961 [sym_kFunction]; ACTIONS 963 [sym_kGoto]; ACTIONS 965 [sym_kIf];
   ACTIONS 967 [sym_kInherited]; ACTIONS 943 [sym_kNil]; ACTIONS 941 [sym_kNot];
   ACTIONS 961 [sym_kProcedure]; ACTIONS 969 [sym_kRaise]; ACTIONS 971 [sym_kRepeat];
   ACTIONS 973 [sym_kString]; ACTIONS 975 [sym_kTry]; ACTIONS 3286 [sym_kUntil];
   ACTIONS 979 [sym_kVar]; ACTIONS 981 [sym_kWhile]; ACTIONS 983 [sym_kWith]].

(** State 1067. *)
Definition ts_parse_table_1067 : parse_row :=
  [STATE 13920 [sym_if]; STATE 14074 [sym_ifElse; sym_while; sym_repeat; sym_for; sym_foreach;
   sym_try; sym_case; sym_block; sym_asm; sym_with; sym_raise; sym_statement; sym_goto;
   sym_labeledStatement; sym__statement]; STATE 15916 [sym_ifTr; sym_ifElseTr; sym_whileTr;
   sym_repeatTr; sym_forTr; sym_foreachTr; sym_tryTr; sym_caseTr]; STATE 15738 [sym_blockTr];
   STATE 15916 [sym_asmTr; sym_withTr; sym_raiseTr; sym_statementTr; sym_gotoTr;
   sym_labeledStatementTr; sym__statementTr]; STATE 13502 [sym_assignment];
   STATE 11905 [sym_varAssignDef]; STATE 13502 [sym_varDef; sym_constDef];
   STATE 1228 [sym_label]; STATE 7994 [sym__expr; sym_exprConditional]; STATE 7363 [sym__ref;
   sym_lambda; sym_inherited; sym_exprDot; sym_exprDeref; sym_exprAs; sym_exprTpl;
   sym_exprSubscript; sym_exprCall]; STATE 7994 [sym_exprBinary; sym_exprUnary];
   STATE 7363 [sym_exprParens; sym_exprBrackets; sym__literal; sym_literalString];
   STATE 6967 [sym__literalString; sym_literalChar]; STATE 7363 [sym_literalNumber];
   STATE 7660 [sym__literalInt; sym__literalFloat]; STATE 6967 [aux_sym_literalString_repeat1];
   ACTIONS 10270 [anon_sym_SEMI]; ACTIONS 9986 [anon_sym_LBRACK]; ACTIONS 9988 [anon_sym_LPAREN];
   ACTIONS 9990 [aux_sym__literalString_token1]; ACTIONS 9992 [anon_sym_POUND];
   ACTIONS 9994 [aux_sym__literalInt_token1]; ACTIONS 9996 [aux_sym__literalInt_token2;
   aux_sym__literalInt_token3]; ACTIONS 9994 [aux_sym__literalFloat_token1];
   ACTIONS 9998 [sym_kAdd; sym_kSub]; ACTIONS 10000 [sym_kAt]; ACTIONS 10002 [sym_kTrue;
   sym_kFalse]; ACTIONS 10004 [sym_labelNumber]; ACTIONS 3 [sym__space];
   ACTIONS 5 [sym_ppDirective]; ACTIONS 3 [sym_comment]; ACTIONS 10002 [sym_ppFragmentExpr];
   ACTIONS 9990 [sym__literalStringMultiline]; ACTIONS 10006 [sym_identifier];
   ACTIONS 10008 [sym_kSpecialize]; ACTIONS 10162 [sym_kAsm]; ACTIONS 10164 [sym_kBegin];
   ACTIONS 10166 [sym_kCase]; ACTIONS 10016 [sym_kConst]; ACTIONS 3278 [sym_kElse];
   ACTIONS 10170 [sym_kFor]; ACTIONS 10020 [sym_kFunction]; ACTIONS 10172 [sym_kGoto];
   ACTIONS 10174 [sym_kIf]; ACTIONS 10026 [sym_kInherited]; ACTIONS 10002 [sym_kNil];
   ACTIONS 10000 [sym_kNot]; ACTIONS 10020 [sym_kProcedure]; ACTIONS 10176 [sym_kRaise];
   ACTIONS 10178 [sym_kRepeat]; ACTIONS 10032 [sym_kString]; ACTIONS 10180 [sym_kTry];
   ACTIONS 10036 [sym_kVar]; ACTIONS 10182 [sym_kWhile]; ACTIONS 10184 [sym_kWith]].

(** State 1068. *)
Definition ts_parse_table_1068 : parse_row :=
  [STATE 13920 [sym_if]; STATE 14088 [sym_ifElse; sym_while; sym_repeat; sym_for; sym_foreach;
   sym_try; sym_case; sym_block; sym_asm; sym_with; sym_raise; sym_statement; sym_goto;
   sym_labeledStatement; sym__statement]; STATE 15171 [sym_ifTr; sym_ifElseTr; sym_whileTr;
   sym_repeatTr; sym_forTr; sym_foreachTr; sym_tryTr; sym_caseTr]; STATE 15738 [sym_blockTr];
   STATE 15171 [sym_asmTr; sym_withTr; sym_raiseTr; sym_statementTr; sym_gotoTr;
   sym_labeledStatementTr; sym__statementTr]; STATE 13502 [sym_assignment];
   STATE 11905 [sym_varAssignDef]; STATE 13502 [sym_varDef; sym_constDef];
   STATE 1228 [sym_label]; STATE 7994 [sym__expr; sym_exprConditional]; STATE 7363 [sym__ref;
   sym_lambda; sym_inherited; sym_exprDot; sym_exprDeref; sym_exprAs; sym_exprTpl;
   sym_exprSubscript; sym_exprCall]; STATE 7994 [sym_exprBinary; sym_exprUnary];
   STATE 7363 [sym_exprParens; sym_exprBrackets; sym__literal; sym_literalString];
   STATE 6967 [sym__literalString; sym_literalChar]; STATE 7363 [sym_literalNumber];
   STATE 7660 [sym__literalInt; sym__literalFloat]; STATE 6967 [aux_sym_literalString_repeat1];
   ACTIONS 10272 [anon_sym_SEMI]; ACTIONS 9986 [anon_sym_LBRACK]; ACTIONS 9988 [anon_sym_LPAREN];
   ACTIONS 9990 [aux_sym__literalString_token1]; ACTIONS 9992 [anon_sym_POUND];
   ACTIONS 9994 [aux_sym__literalInt_token1]; ACTIONS 9996 [aux_sym__literalInt_token2;
   aux_sym__literalInt_token3]; ACTIONS 9994 [aux_sym__literalFloat_token1];
   ACTIONS 9998 [sym_kAdd; sym_kSub]; ACTIONS 10000 [sym_kAt]; ACTIONS 10002 [sym_kTrue;
   sym_kFalse]; ACTIONS 10004 [sym_labelNumber]; ACTIONS 3 [sym__space];
   ACTIONS 5 [sym_ppDirective]; ACTIONS 3 [sym_comment]; ACTIONS 10002 [sym_ppFragmentExpr];
   ACTIONS 9990 [sym__literalStringMultiline]; ACTIONS 10006 [sym_identifier];
   ACTIONS 10008 [sym_kSpecialize]; ACTIONS 10162 [sym_kAsm]; ACTIONS 10164 [sym_kBegin];
   ACTIONS 10166 [sym_kCase]; ACTIONS 10016 [sym_kConst]; ACTIONS 3282 [sym_kElse];
   ACTIONS 10170 [sym_kFor]; ACTIONS 10020 [sym_kFunction]; ACTIONS 10172 [sym_kGoto];
   ACTIONS 10174 [sym_kIf]; ACTIONS 10026 [sym_kInherited]; ACTIONS 10002 [sym_kNil];
   ACTIONS 10000 [sym_kNot]; ACTIONS 10020 [sym_kProcedure]; ACTIONS 10176 [sym_kRaise];
   ACTIONS 10178 [sym_kRepeat]; ACTIONS 10032 [sym_kString]; ACTIONS 10180 [sym_kTry];
   ACTIONS 10036 [sym_kVar]; ACTIONS 10182 [sym_kWhile]; ACTIONS 10184 [sym_kWith]].

(** State 1069. *)
Definition ts_parse_table_1069 : parse_row :=
  [STATE 14011 [sym_if]; STATE 15988 [sym_ifElse; sym_while; sym_repeat; sym_for; sym_foreach;
   sym_try; sym_case; sym_block; sym_asm; sym_with; sym_raise; sym_statement; sym_goto;
   sym_labeledStatement; sym__statement]; STATE 15475 [sym_ifTr; sym_ifElseTr; sym_whileTr;
   sym_repeatTr; sym_forTr; sym_foreachTr; sym_tryTr; sym_caseTr]; STATE 15738 [sym_blockTr];
   STATE 15475 [sym_asmTr; sym_withTr; sym_raiseTr; sym_statementTr; sym_gotoTr;
   sym_labeledStatementTr; sym__statementTr]; STATE 13505 [sym_assignment];
   STATE 11905 [sym_varAssignDef]; STATE 13505 [sym_varDef; sym_constDef];
   STATE 1233 [sym_label]; STATE 7978 [sym__expr; sym_exprConditional]; STATE 7363 [sym__ref;
   sym_lambda; sym_inherited; sym_exprDot; sym_exprDeref; sym_exprAs; sym_exprTpl;
   sym_exprSubscript; sym_exprCall]; STATE 7978 [sym_exprBinary; sym_exprUnary];
   STATE 7363 [sym_exprParens; sym_exprBrackets; sym__literal; sym_literalString];
   STATE 6967 [sym__literalString; sym_literalChar]; STATE 7363 [sym_literalNumber];
   STATE 7660 [sym__literalInt; sym__literalFloat]; STATE 6967 [aux_sym_literalString_repeat1];
   ACTIONS 10274 [anon_sym_SEMI]; ACTIONS 9986 [anon_sym_LBRACK]; ACTIONS 9988 [anon_sym_LPAREN];
   ACTIONS 9990 [aux_sym__literalString_token1]; ACTIONS 9992 [anon_sym_POUND];
   ACTIONS 9994 [aux_sym__literalInt_token1]; ACTIONS 9996 [aux_sym__literalInt_token2;
   aux_sym__literalInt_token3]; ACTIONS 9994 [aux_sym__literalFloat_token1];
   ACTIONS 9998 [sym_kAdd; sym_kSub]; ACTIONS 10000 [sym_kAt]; ACTIONS 10002 [sym_kTrue;
   sym_kFalse]; ACTIONS 10004 [sym_labelNumber]; ACTIONS 3 [sym__space];
   ACTIONS 5 [sym_ppDirective]; ACTIONS 3 [sym_comment]; ACTIONS 10002 [sym_ppFragmentExpr];
   ACTIONS 9990 [sym__literalStringMultiline]; ACTIONS 10006 [sym_identifier];
   ACTIONS 10008 [sym_kSpecialize]; ACTIONS 10276 [sym_kAsm]; ACTIONS 10278 [sym_kBegin];
   ACTIONS 10280 [sym_kCase]; ACTIONS 10016 [sym_kConst]; ACTIONS 10168 [sym_kElse];
   ACTIONS 10282 [sym_kFor]; ACTIONS 10020 [sym_kFunction]; ACTIONS 10284 [sym_kGoto];
   ACTIONS 10286 [sym_kIf]; ACTIONS 10026 [sym_kInherited]; ACTIONS 10002 [sym_kNil];
   ACTIONS 10000 [sym_kNot]; ACTIONS 10020 [sym_kProcedure]; ACTIONS 10288 [sym_kRaise];
   ACTIONS 10290 [sym_kRepeat]; ACTIONS 10032 [sym_kString]; ACTIONS 10292 [sym_kTry];
   ACTIONS 10036 [sym_kVar]; ACTIONS 10294 [sym_kWhile]; ACTIONS 10296 [sym_kWith]].

(** State 1070. *)
Definition ts_parse_table_1070 : parse_row :=
  [STATE 13920 [sym_if]; STATE 14101 [sym_ifElse; sym_while; sym_repeat; sym_for; sym_foreach;
   sym_try; sym_case; sym_block; sym_asm; sym_with; sym_raise; sym_statement; sym_goto];
   STATE 14100 [sym_labeledStatement]; STATE 14101 [sym__statement]; STATE 14171 [sym_ifTr;
   sym_ifElseTr; sym_whileTr; sym_repeatTr; sym_forTr; sym_foreachTr; sym_tryTr; sym_caseTr];
   STATE 15738 [sym_blockTr]; STATE 14171 [sym_asmTr; sym_withTr; sym_raiseTr; sym_statementTr;
   sym_gotoTr]; STATE 14168 [sym_labeledStatementTr]; STATE 14171 [sym__statementTr];
   STATE 13502 [sym_assignment]; STATE 11905 [sym_varAssignDef]; STATE 13502 [sym_varDef;
   sym_constDef]; STATE 1228 [sym_label]; STATE 7994 [sym__expr; sym_exprConditional];
   STATE 7363 [sym__ref; sym_lambda; sym_inherited; sym_exprDot; sym_exprDeref; sym_exprAs;
   sym_exprTpl; sym_exprSubscript; sym_exprCall]; STATE 7994 [sym_exprBinary; sym_exprUnary];
   STATE 7363 [sym_exprParens; sym_exprBrackets; sym__literal; sym_literalString];
   STATE 6967 [sym__literalString; sym_literalChar]; STATE 7363 [sym_literalNumber];
   STATE 7660 [sym__literalInt; sym__literalFloat]; STATE 6967 [aux_sym_literalString_repeat1];
   ACTIONS 10298 [anon_sym_SEMI]; ACTIONS 9986 [anon_sym_LBRACK]; ACTIONS 9988 [anon_sym_LPAREN];
   ACTIONS 9990 [aux_sym__literalString_token1]; ACTIONS 9992 [anon_sym_POUND];
   ACTIONS 9994 [aux_sym__literalInt_token1]; ACTIONS 9996 [aux_sym__literalInt_token2;
   aux_sym__literalInt_token3]; ACTIONS 9994 [aux_sym__literalFloat_token1];
   ACTIONS 9998 [sym_kAdd; sym_kSub]; ACTIONS 10000 [sym_kAt]; ACTIONS 10002 [sym_kTrue;
   sym_kFalse]; ACTIONS 10004 [sym_labelNumber]; ACTIONS 3 [sym__space];
   ACTIONS 5 [sym_ppDirective]; ACTIONS 3 [sym_comment]; ACTIONS 10002 [sym_ppFragmentExpr];
   ACTIONS 9990 [sym__literalStringMultiline]; ACTIONS 10006 [sym_identifier];
   ACTIONS 10008 [sym_kSpecialize]; ACTIONS 10162 [sym_kAsm]; ACTIONS 10164 [sym_kBegin];
   ACTIONS 10166 [sym_kCase]; ACTIONS 10016 [sym_kConst]; ACTIONS 3286 [sym_kElse];
   ACTIONS 10170 [sym_kFor]; ACTIONS 10020 [sym_kFunction]; ACTIONS 10172 [sym_kGoto];
   ACTIONS 10174 [sym_kIf]; ACTIONS 10026 [sym_kInherited]; ACTIONS 10002 [sym_kNil];
   ACTIONS 10000 [sym_kNot]; ACTIONS 10020 [sym_kProcedure]; ACTIONS 10176 [sym_kRaise];
   ACTIONS 10178 [sym_kRepeat]; ACTIONS 10032 [sym_kString]; ACTIONS 10180 [sym_kTry];
   ACTIONS 10036 [sym_kVar]; ACTIONS 10182 [sym_kWhile]; ACTIONS 10184 [sym_kWith]].

(** State 1071. *)
Definition ts_parse_table_1071 : parse_row :=
  [STATE 13920 [sym_if]; STATE 14107 [sym_ifElse; sym_while; sym_repeat; sym_for; sym_foreach;
   sym_try; sym_case; sym_block; sym_asm; sym_with; sym_raise; sym_statement; sym_goto;
   sym_labeledStatement; sym__statement]; STATE 15904 [sym_ifTr; sym_ifElseTr; sym_whileTr;
   sym_repeatTr; sym_forTr; sym_foreachTr; sym_tryTr; sym_caseTr]; STATE 15738 [sym_blockTr];
   STATE 15904 [sym_asmTr; sym_withTr; sym_raiseTr; sym_statementTr; sym_gotoTr;
   sym_labeledStatementTr; sym__statementTr]; STATE 13502 [sym_assignment];
   STATE 11905 [sym_varAssignDef]; STATE 13502 [sym_varDef; sym_constDef];
   STATE 1228 [sym_label]; STATE 7994 [sym__expr; sym_exprConditional]; STATE 7363 [sym__ref;
   sym_lambda; sym_inherited; sym_exprDot; sym_exprDeref; sym_exprAs; sym_exprTpl;
   sym_exprSubscript; sym_exprCall]; STATE 7994 [sym_exprBinary; sym_exprUnary];
   STATE 7363 [sym_exprParens; sym_exprBrackets; sym__literal; sym_literalString];
   STATE 6967 [sym__literalString; sym_literalChar]; STATE 7363 [sym_literalNumber];
   STATE 7660 [sym__literalInt; sym__literalFloat]; STATE 6967 [aux_sym_literalString_repeat1];
   ACTIONS 10300 [anon_sym_SEMI]; ACTIONS 9986 [anon_sym_LBRACK]; ACTIONS 9988 [anon_sym_LPAREN];
   ACTIONS 9990 [aux_sym__literalString_token1]; ACTIONS 9992 [anon_sym_POUND];
   ACTIONS 9994 [aux_sym__literalInt_token1]; ACTIONS 9996 [aux_sym__literalInt_token2;
   aux_sym__literalInt_token3]; ACTIONS 9994 [aux_sym__literalFloat_token1];
   ACTIONS 9998 [sym_kAdd; sym_kSub]; ACTIONS 10000 [sym_kAt]; ACTIONS 10002 [sym_kTrue;
   sym_kFalse]; ACTIONS 10004 [sym_labelNumber]; ACTIONS 3 [sym__space];
   ACTIONS 5 [sym_ppDirective]; ACTIONS 3 [sym_comment]; ACTIONS 10002 [sym_ppFragmentExpr];
   ACTIONS 9990 [sym__literalStringMultiline]; ACTIONS 10006 [sym_identifier];
   ACTIONS 10008 [sym_kSpecialize]; ACTIONS 10162 [sym_kAsm]; ACTIONS 10164 [sym_kBegin];
   ACTIONS 10166 [sym_kCase]; ACTIONS 10016 [sym_kConst]; ACTIONS 3290 [sym_kElse];
   ACTIONS 10170 [sym_kFor]; ACTIONS 10020 [sym_kFunction]; ACTIONS 10172 [sym_kGoto];
   ACTIONS 10174 [sym_kIf]; ACTIONS 10026 [sym_kInherited]; ACTIONS 10002 [sym_kNil];
   ACTIONS 10000 [sym_kNot]; ACTIONS 10020 [sym_kProcedure]; ACTIONS 10176 [sym_kRaise];
   ACTIONS 10178 [sym_kRepeat]; ACTIONS 10032 [sym_kString]; ACTIONS 10180 [sym_kTry];
   ACTIONS 10036 [sym_kVar]; ACTIONS 10182 [sym_kWhile]; ACTIONS 10184 [sym_kWith]].

(** State 1072. *)
Definition ts_parse_table_1072 : parse_row :=
  [STATE 13920 [sym_if]; STATE 14108 [sym_ifElse; sym_while; sym_repeat; sym_for; sym_foreach;
   sym_try; sym_case; sym_block; sym_asm; sym_with; sym_raise; sym_statement; sym_goto;
   sym_labeledStatement; sym__statement]; STATE 15932 [sym_ifTr; sym_ifElseTr; sym_whileTr;
   sym_repeatTr; sym_forTr; sym_foreachTr; sym_tryTr; sym_caseTr]; STATE 15738 [sym_blockTr];
   STATE 15932 [sym_asmTr; sym_withTr; sym_raiseTr; sym_statementTr; sym_gotoTr;
   sym_labeledStatementTr; sym__statementTr]; STATE 13502 [sym_assignment];
   STATE 11905 [sym_varAssignDef]; STATE 13502 [sym_varDef; sym_constDef];
   STATE 1228 [sym_label]; STATE 7994 [sym__expr; sym_exprConditional]; STATE 7363 [sym__ref;
   sym_lambda; sym_inherited; sym_exprDot; sym_exprDeref; sym_exprAs; sym_exprTpl;
   sym_exprSubscript; sym_exprCall]; STATE 7994 [sym_exprBinary; sym_exprUnary];
   STATE 7363 [sym_exprParens; sym_exprBrackets; sym__literal; sym_literalString];
   STATE 6967 [sym__literalString; sym_literalChar]; STATE 7363 [sym_literalNumber];
   STATE 7660 [sym__literalInt; sym__literalFloat]; STATE 6967 [aux_sym_literalString_repeat1];
   ACTIONS 10302 [anon_sym_SEMI]; ACTIONS 9986 [anon_sym_LBRACK]; ACTIONS 9988 [anon_sym_LPAREN];
   ACTIONS 9990 [aux_sym__literalString_token1]; ACTIONS 9992 [anon_sym_POUND];
   ACTIONS 9994 [aux_sym__literalInt_token1]; ACTIONS 9996 [aux_sym__literalInt_token2;
   aux_sym__literalInt_token3]; ACTIONS 9994 [aux_sym__literalFloat_token1];
   ACTIONS 9998 [sym_kAdd; sym_kSub]; ACTIONS 10000 [sym_kAt]; ACTIONS 10002 [sym_kTrue;
   sym_kFalse]; ACTIONS 10004 [sym_labelNumber]; ACTIONS 3 [sym__space];
   ACTIONS 5 [sym_ppDirective]; ACTIONS 3 [sym_comment]; ACTIONS 10002 [sym_ppFragmentExpr];
   ACTIONS 9990 [sym__literalStringMultiline]; ACTIONS 10006 [sym_identifier];
   ACTIONS 10008 [sym_kSpecialize]; ACTIONS 10162 [sym_kAsm]; ACTIONS 10164 [sym_kBegin];
   ACTIONS 10166 [sym_kCase]; ACTIONS 10016 [sym_kConst]; ACTIONS 3296 [sym_kElse];
   ACTIONS 10170 [sym_kFor]; ACTIONS 10020 [sym_kFunction]; ACTIONS 10172 [sym_kGoto];
   ACTIONS 10174 [sym_kIf]; ACTIONS 10026 [sym_kInherited]; ACTIONS 10002 [sym_kNil];
   ACTIONS 10000 [sym_kNot]; ACTIONS 10020 [sym_kProcedure]; ACTIONS 10176 [sym_kRaise];
   ACTIONS 10178 [sym_kRepeat]; ACTIONS 10032 [sym_kString]; ACTIONS 10180 [sym_kTry];
   ACTIONS 10036 [sym_kVar]; ACTIONS 10182 [sym_kWhile]; ACTIONS 10184 [sym_kWith]].

(** State 1073. *)
Definition ts_parse_table_1073 : parse_row :=
  [STATE 13920 [sym_if]; STATE 14111 [sym_ifElse; sym_while; sym_repeat; sym_for; sym_foreach;
   sym_try; sym_case; sym_block; sym_asm; sym_with; sym_raise; sym_statement; sym_goto;
   sym_labeledStatement; sym__statement]; STATE 15995 [sym_ifTr; sym_ifElseTr; sym_whileTr;
   sym_repeatTr; sym_forTr; sym_foreachTr; sym_tryTr; sym_caseTr]; STATE 15738 [sym_blockTr];
   STATE 15995 [sym_asmTr; sym_withTr; sym_raiseTr; sym_statementTr; sym_gotoTr;
   sym_labeledStatementTr; sym__statementTr]; STATE 13502 [sym_assignment];
   STATE 11905 [sym_varAssignDef]; STATE 13502 [sym_varDef; sym_constDef];
   STATE 1228 [sym_label]; STATE 7994 [sym__expr; sym_exprConditional]; STATE 7363 [sym__ref;
   sym_lambda; sym_inherited; sym_exprDot; sym_exprDeref; sym_exprAs; sym_exprTpl;
   sym_exprSubscript; sym_exprCall]; STATE 7994 [sym_exprBinary; sym_exprUnary];
   STATE 7363 [sym_exprParens; sym_exprBrackets; sym__literal; sym_literalString];
   STATE 6967 [sym__literalString; sym_literalChar]; STATE 7363 [sym_literalNumber];
   STATE 7660 [sym__literalInt; sym__literalFloat]; STATE 6967 [aux_sym_literalString_repeat1];
   ACTIONS 10304 [anon_sym_SEMI]; ACTIONS 9986 [anon_sym_LBRACK]; ACTIONS 9988 [anon_sym_LPAREN];
   ACTIONS 9990 [aux_sym__literalString_token1]; ACTIONS 9992 [anon_sym_POUND];
   ACTIONS 9994 [aux_sym__literalInt_token1]; ACTIONS 9996 [aux_sym__literalInt_token2;
   aux_sym__literalInt_token3]; ACTIONS 9994 [aux_sym__literalFloat_token1];
   ACTIONS 9998 [sym_kAdd; sym_kSub]; ACTIONS 10000 [sym_kAt]; ACTIONS 10002 [sym_kTrue;
   sym_kFalse]; ACTIONS 10004 [sym_labelNumber]; ACTIONS 3 [sym__space];
   ACTIONS 5 [sym_ppDirective]; ACTIONS 3 [sym_comment]; ACTIONS 10002 [sym_ppFragmentExpr];
   ACTIONS 9990 [sym__literalStringMultiline]; ACTIONS 10006 [sym_identifier];
   ACTIONS 10008 [sym_kSpecialize]; ACTIONS 10162 [sym_kAsm]; ACTIONS 10164 [sym_kBegin];
   ACTIONS 10166 [sym_kCase]; ACTIONS 10016 [sym_kConst]; ACTIONS 3304 [sym_kElse];
   ACTIONS 10170 [sym_kFor]; ACTIONS 10020 [sym_kFunction]; ACTIONS 10172 [sym_kGoto];
   ACTIONS 10174 [sym_kIf]; ACTIONS 10026 [sym_kInherited]; ACTIONS 10002 [sym_kNil];
   ACTIONS 10000 [sym_kNot]; ACTIONS 10020 [sym_kProcedure]; ACTIONS 10176 [sym_kRaise];
   ACTIONS 10178 [sym_kRepeat]; ACTIONS 10032 [sym_kString]; ACTIONS 10180 [sym_kTry];
   ACTIONS 10036 [sym_kVar]; ACTIONS 10182 [sym_kWhile]; ACTIONS 10184 [sym_kWith]].

(** State 1074. *)
Definition ts_parse_table_1074 : parse_row :=
  [STATE 6532 [sym_if]; STATE 6474 [sym_ifElse; sym_while; sym_repeat; sym_for; sym_foreach;
   sym_try; sym_case; sym_block; sym_asm; sym_with; sym_raise; sym_statement; sym_goto;
   sym_labeledStatement; sym__statement]; STATE 15874 [sym_ifTr; sym_ifElseTr; sym_whileTr;
   sym_repeatTr; sym_forTr; sym_foreachTr; sym_tryTr; sym_caseTr]; STATE 15738 [sym_blockTr];
   STATE 15874 [sym_asmTr; sym_withTr; sym_raiseTr; sym_statementTr; sym_gotoTr;
   sym_labeledStatementTr; sym__statementTr]; STATE 13641 [sym_assignment];
   STATE 11905 [sym_varAssignDef]; STATE 13641 [sym_varDef; sym_constDef];
   STATE 1242 [sym_label]; STATE 7999 [sym__expr; sym_exprConditional]; STATE 7363 [sym__ref;
   sym_lambda; sym_inherited; sym_exprDot; sym_exprDeref; sym_exprAs; sym_exprTpl;
   sym_exprSubscript; sym_exprCall]; STATE 7999 [sym_exprBinary; sym_exprUnary];
   STATE 7363 [sym_exprParens; sym_exprBrackets; sym__literal; sym_literalString];
   STATE 6967 [sym__literalString; sym_literalChar]; STATE 7363 [sym_literalNumber];
   STATE 7660 [sym__literalInt; sym__literalFloat]; STATE 6967 [aux_sym_literalString_repeat1];
   ACTIONS 10306 [anon_sym_SEMI]; ACTIONS 9986 [anon_sym_LBRACK]; ACTIONS 9988 [anon_sym_LPAREN];
   ACTIONS 9990 [aux_sym__literalString_token1]; ACTIONS 9992 [anon_sym_POUND];
   ACTIONS 9994 [aux_sym__literalInt_token1]; ACTIONS 9996 [aux_sym__literalInt_token2;
   aux_sym__literalInt_token3]; ACTIONS 9994 [aux_sym__literalFloat_token1];
   ACTIONS 9998 [sym_kAdd; sym_kSub]; ACTIONS 10000 [sym_kAt]; ACTIONS 10002 [sym_kTrue;
   sym_kFalse]; ACTIONS 10004 [sym_labelNumber]; ACTIONS 3 [sym__space];
   ACTIONS 5 [sym_ppDirective]; ACTIONS 3 [sym_comment]; ACTIONS 10002 [sym_ppFragmentExpr];
   ACTIONS 9990 [sym__literalStringMultiline]; ACTIONS 10006 [sym_identifier];
   ACTIONS 10008 [sym_kSpecialize]; ACTIONS 10308 [sym_kAsm]; ACTIONS 10310 [sym_kBegin];
   ACTIONS 10312 [sym_kCase]; ACTIONS 10016 [sym_kConst]; ACTIONS 3272 [sym_kElse];
   ACTIONS 10314 [sym_kFor]; ACTIONS 10020 [sym_kFunction]; ACTIONS 10316 [sym_kGoto];
   ACTIONS 10318 [sym_kIf]; ACTIONS 10026 [sym_kInherited]; ACTIONS 10002 [sym_kNil];
   ACTIONS 10000 [sym_kNot]; ACTIONS 10020 [sym_kProcedure]; ACTIONS 10320 [sym_kRaise];
   ACTIONS 10322 [sym_kRepeat]; ACTIONS 10032 [sym_kString]; ACTIONS 10324 [sym_kTry];
   ACTIONS 10036 [sym_kVar]; ACTIONS 10326 [sym_kWhile]; ACTIONS 10328 [sym_kWith]].

(** State 1075. *)
Definition ts_parse_table_1075 : parse_row :=
  [STATE 6532 [sym_if]; STATE 6477 [sym_ifElse; sym_while; sym_repeat; sym_for; sym_foreach;
   sym_try; sym_case; sym_block; sym_asm; sym_with; sym_raise; sym_statement; sym_goto;
   sym_labeledStatement; sym__statement]; STATE 15916 [sym_ifTr; sym_ifElseTr; sym_whileTr;
   sym_repeatTr; sym_forTr; sym_foreachTr; sym_tryTr; sym_caseTr]; STATE 15738 [sym_blockTr];
   STATE 15916 [sym_asmTr; sym_withTr; sym_raiseTr; sym_statementTr; sym_gotoTr;
   sym_labeledStatementTr; sym__statementTr]; STATE 13641 [sym_assignment];
   STATE 11905 [sym_varAssignDef]; STATE 13641 [sym_varDef; sym_constDef];
   STATE 1242 [sym_label]; STATE 7999 [sym__expr; sym_exprConditional]; STATE 7363 [sym__ref;
   sym_lambda; sym_inherited; sym_exprDot; sym_exprDeref; sym_exprAs; sym_exprTpl;
   sym_exprSubscript; sym_exprCall]; STATE 7999 [sym_exprBinary; sym_exprUnary];
   STATE 7363 [sym_exprParens; sym_exprBrackets; sym__literal; sym_literalString];
   STATE 6967 [sym__literalString; sym_literalChar]; STATE 7363 [sym_literalNumber];
   STATE 7660 [sym__literalInt; sym__literalFloat]; STATE 6967 [aux_sym_literalString_repeat1];
   ACTIONS 10330 [anon_sym_SEMI]; ACTIONS 9986 [anon_sym_LBRACK]; ACTIONS 9988 [anon_sym_LPAREN];
   ACTIONS 9990 [aux_sym__literalString_token1]; ACTIONS 9992 [anon_sym_POUND];
   ACTIONS 9994 [aux_sym__literalInt_token1]; ACTIONS 9996 [aux_sym__literalInt_token2;
   aux_sym__literalInt_token3]; ACTIONS 9994 [aux_sym__literalFloat_token1];
   ACTIONS 9998 [sym_kAdd; sym_kSub]; ACTIONS 10000 [sym_kAt]; ACTIONS 10002 [sym_kTrue;
   sym_kFalse]; ACTIONS 10004 [sym_labelNumber]; ACTIONS 3 [sym__space];
   ACTIONS 5 [sym_ppDirective]; ACTIONS 3 [sym_comment]; ACTIONS 10002 [sym_ppFragmentExpr];
   ACTIONS 9990 [sym__literalStringMultiline]; ACTIONS 10006 [sym_identifier];
   ACTIONS 10008 [sym_kSpecialize]; ACTIONS 10308 [sym_kAsm]; ACTIONS 10310 [sym_kBegin];
   ACTIONS 10312 [sym_kCase]; ACTIONS 10016 [sym_kConst]; ACTIONS 3278 [sym_kElse];
   ACTIONS 10314 [sym_kFor]; ACTIONS 10020 [sym_kFunction]; ACTIONS 10316 [sym_kGoto];
   ACTIONS 10318 [sym_kIf]; ACTIONS 10026 [sym_kInherited]; ACTIONS 10002 [sym_kNil];
   ACTIONS 10000 [sym_kNot]; ACTIONS 10020 [sym_kProcedure]; ACTIONS 10320 [sym_kRaise];
   ACTIONS 10322 [sym_kRepeat]; ACTIONS 10032 [sym_kString]; ACTIONS 10324 [sym_kTry];
   ACTIONS 10036 [sym_kVar]; ACTIONS 10326 [sym_kWhile]; ACTIONS 10328 [sym_kWith]].

(** State 1076. *)
Definition ts_parse_table_1076 : parse_row :=
  [STATE 6532 [sym_if]; STATE 6487 [sym_ifElse; sym_while; sym_repeat; sym_for; sym_foreach;
   sym_try; sym_case; sym_block; sym_asm; sym_with; sym_raise; sym_statement; sym_goto;
   sym_labeledStatement; sym__statement]; STATE 15171 [sym_ifTr; sym_ifElseTr; sym_whileTr;
   sym_repeatTr; sym_forTr; sym_foreachTr; sym_tryTr; sym_caseTr]; STATE 15738 [sym_blockTr];
   STATE 15171 [sym_asmTr; sym_withTr; sym_raiseTr; sym_statementTr; sym_gotoTr;
   sym_labeledStatementTr; sym__statementTr]; STATE 13641 [sym_assignment];
   STATE 11905 [sym_varAssignDef]; STATE 13641 [sym_varDef; sym_constDef];
   STATE 1242 [sym_label]; STATE 7999 [sym__expr; sym_exprConditional]; STATE 7363 [sym__ref;
   sym_lambda; sym_inherited; sym_exprDot; sym_exprDeref; sym_exprAs; sym_exprTpl;
   sym_exprSubscript; sym_exprCall]; STATE 7999 [sym_exprBinary; sym_exprUnary];
   STATE 7363 [sym_exprParens; sym_exprBrackets; sym__literal; sym_literalString];
   STATE 6967 [sym__literalString; sym_literalChar]; STATE 7363 [sym_literalNumber];
   STATE 7660 [sym__literalInt; sym__literalFloat]; STATE 6967 [aux_sym_literalString_repeat1];
   ACTIONS 10332 [anon_sym_SEMI]; ACTIONS 9986 [anon_sym_LBRACK]; ACTIONS 9988 [anon_sym_LPAREN];
   ACTIONS 9990 [aux_sym__literalString_token1]; ACTIONS 9992 [anon_sym_POUND];
   ACTIONS 9994 [aux_sym__literalInt_token1]; ACTIONS 9996 [aux_sym__literalInt_token2;
   aux_sym__literalInt_token3]; ACTIONS 9994 [aux_sym__literalFloat_token1];
   ACTIONS 9998 [sym_kAdd; sym_kSub]; ACTIONS 10000 [sym_kAt]; ACTIONS 10002 [sym_kTrue;
   sym_kFalse]; ACTIONS 10004 [sym_labelNumber]; ACTIONS 3 [sym__space];
   ACTIONS 5 [sym_ppDirective]; ACTIONS 3 [sym_comment]; ACTIONS 10002 [sym_ppFragmentExpr];
   ACTIONS 9990 [sym__literalStringMultiline]; ACTIONS 10006 [sym_identifier];
   ACTIONS 10008 [sym_kSpecialize]; ACTIONS 10308 [sym_kAsm]; ACTIONS 10310 [sym_kBegin];
   ACTIONS 10312 [sym_kCase]; ACTIONS 10016 [sym_kConst]; ACTIONS 3282 [sym_kElse];
   ACTIONS 10314 [sym_kFor]; ACTIONS 10020 [sym_kFunction]; ACTIONS 10316 [sym_kGoto];
   ACTIONS 10318 [sym_kIf]; ACTIONS 10026 [sym_kInherited]; ACTIONS 10002 [sym_kNil];
   ACTIONS 10000 [sym_kNot]; ACTIONS 10020 [sym_kProcedure]; ACTIONS 10320 [sym_kRaise];
   ACTIONS 10322 [sym_kRepeat]; ACTIONS 10032 [sym_kString]; ACTIONS 10324 [sym_kTry];
   ACTIONS 10036 [sym_kVar]; ACTIONS 10326 [sym_kWhile]; ACTIONS 10328 [sym_kWith]].

(** State 1077. *)
Definition ts_parse_table_1077 : parse_row :=
  [STATE 1247 [sym_if]; STATE 1313 [sym_ifElse; sym_while; sym_repeat; sym_for; sym_foreach;
   sym_try; sym_case; sym_block; sym_asm; sym_with; sym_raise; sym_statement; sym_goto;
   sym_labeledStatement; sym__statement]; STATE 14923 [sym_ifTr; sym_ifElseTr; sym_whileTr;
   sym_repeatTr; sym_forTr; sym_foreachTr; sym_tryTr; sym_caseTr]; STATE 15738 [sym_blockTr];
   STATE 14923 [sym_asmTr; sym_withTr; sym_raiseTr; sym_statementTr; sym_gotoTr;
   sym_labeledStatementTr; sym__statementTr]; STATE 13934 [sym_assignment];
   STATE 11905 [sym_varAssignDef]; STATE 13934 [sym_varDef; sym_constDef];
   STATE 1220 [sym_label]; STATE 7948 [sym__expr; sym_exprConditional]; STATE 7363 [sym__ref;
   sym_lambda; sym_inherited; sym_exprDot; sym_exprDeref; sym_exprAs; sym_exprTpl;
   sym_exprSubscript; sym_exprCall]; STATE 7948 [sym_exprBinary; sym_exprUnary];
   STATE 7363 [sym_exprParens; sym_exprBrackets; sym__literal; sym_literalString];
   STATE 6967 [sym__literalString; sym_literalChar]; STATE 7363 [sym_literalNumber];
   STATE 7660 [sym__literalInt; sym__literalFloat]; STATE 6967 [aux_sym_literalString_repeat1];
   ACTIONS 10334 [anon_sym_SEMI]; ACTIONS 9986 [anon_sym_LBRACK]; ACTIONS 9988 [anon_sym_LPAREN];
   ACTIONS 9990 [aux_sym__literalString_token1]; ACTIONS 9992 [anon_sym_POUND];
   ACTIONS 9994 [aux_sym__literalInt_token1]; ACTIONS 9996 [aux_sym__literalInt_token2;
   aux_sym__literalInt_token3]; ACTIONS 9994 [aux_sym__literalFloat_token1];
   ACTIONS 9998 [sym_kAdd; sym_kSub]; ACTIONS 10000 [sym_kAt]; ACTIONS 10002 [sym_kTrue;
   sym_kFalse]; ACTIONS 10004 [sym_labelNumber]; ACTIONS 3 [sym__space];
   ACTIONS 5 [sym_ppDirective]; ACTIONS 3 [sym_comment]; ACTIONS 10002 [sym_ppFragmentExpr];
   ACTIONS 9990 [sym__literalStringMultiline]; ACTIONS 10006 [sym_identifier];
   ACTIONS 10008 [sym_kSpecialize]; ACTIONS 10336 [sym_kAsm]; ACTIONS 10338 [sym_kBegin];
   ACTIONS 10340 [sym_kCase]; ACTIONS 10016 [sym_kConst]; ACTIONS 10342 [sym_kElse];
   ACTIONS 10344 [sym_kFor]; ACTIONS 10020 [sym_kFunction]; ACTIONS 10346 [sym_kGoto];
   ACTIONS 10348 [sym_kIf]; ACTIONS 10026 [sym_kInherited]; ACTIONS 10002 [sym_kNil];
   ACTIONS 10000 [sym_kNot]; ACTIONS 10020 [sym_kProcedure]; ACTIONS 10350 [sym_kRaise];
   ACTIONS 10352 [sym_kRepeat]; ACTIONS 10032 [sym_kString]; ACTIONS 10354 [sym_kTry];
   ACTIONS 10036 [sym_kVar]; ACTIONS 10356 [sym_kWhile]; ACTIONS 10358 [sym_kWith]].

(** State 1078. *)
Definition ts_parse_table_1078 : parse_row :=
  [STATE 6532 [sym_if]; STATE 6503 [sym_ifElse; sym_while; sym_repeat; sym_for; sym_foreach;
   sym_try; sym_case; sym_block; sym_asm; sym_with; sym_raise; sym_statement; sym_goto];
   STATE 6502 [sym_labeledStatement]; STATE 6503 [sym__statement]; STATE 14171 [sym_ifTr;
   sym_ifElseTr; sym_whileTr; sym_repeatTr; sym_forTr; sym_foreachTr; sym_tryTr; sym_caseTr];
   STATE 15738 [sym_blockTr]; STATE 14171 [sym_asmTr; sym_withTr; sym_raiseTr; sym_statementTr;
   sym_gotoTr]; STATE 14168 [sym_labeledStatementTr]; STATE 14171 [sym__statementTr];
   STATE 13641 [sym_assignment]; STATE 11905 [sym_varAssignDef]; STATE 13641 [sym_varDef;
   sym_constDef]; STATE 1242 [sym_label]; STATE 7999 [sym__expr; sym_exprConditional];
   STATE 7363 [sym__ref; sym_lambda; sym_inherited; sym_exprDot; sym_exprDeref; sym_exprAs;
   sym_exprTpl; sym_exprSubscript; sym_exprCall]; STATE 7999 [sym_exprBinary; sym_exprUnary];
   STATE 7363 [sym_exprParens; sym_exprBrackets; sym__literal; sym_literalString];
   STATE 6967 [sym__literalString; sym_literalChar]; STATE 7363 [sym_literalNumber];
   STATE 7660 [sym__literalInt; sym__literalFloat]; STATE 6967 [aux_sym_literalString_repeat1];
   ACTIONS 10360 [anon_sym_SEMI]; ACTIONS 9986 [anon_sym_LBRACK]; ACTIONS 9988 [anon_sym_LPAREN];
   ACTIONS 9990 [aux_sym__literalString_token1]; ACTIONS 9992 [anon_sym_POUND];
   ACTIONS 9994 [aux_sym__literalInt_token1]; ACTIONS 9996 [aux_sym__literalInt_token2;
   aux_sym__literalInt_token3]; ACTIONS 9994 [aux_sym__literalFloat_token1];
   ACTIONS 9998 [sym_kAdd; sym_kSub]; ACTIONS 10000 [sym_kAt]; ACTIONS 10002 [sym_kTrue;
   sym_kFalse]; ACTIONS 10004 [sym_labelNumber]; ACTIONS 3 [sym__space];
   ACTIONS 5 [sym_ppDirective]; ACTIONS 3 [sym_comment]; ACTIONS 10002 [sym_ppFragmentExpr];
   ACTIONS 9990 [sym__literalStringMultiline]; ACTIONS 10006 [sym_identifier];
   ACTIONS 10008 [sym_kSpecialize]; ACTIONS 10308 [sym_kAsm]; ACTIONS 10310 [sym_kBegin];
   ACTIONS 10312 [sym_kCase]; ACTIONS 10016 [sym_kConst]; ACTIONS 3286 [sym_kElse];
   ACTIONS 10314 [sym_kFor]; ACTIONS 10020 [sym_kFunction]; ACTIONS 10316 [sym_kGoto];
   ACTIONS 10318 [sym_kIf]; ACTIONS 10026 [sym_kInherited]; ACTIONS 10002 [sym_kNil];
   ACTIONS 10000 [sym_kNot]; ACTIONS 10020 [sym_kProcedure]; ACTIONS 10320 [sym_kRaise];
   ACTIONS 10322 [sym_kRepeat]; ACTIONS 10032 [sym_kString]; ACTIONS 10324 [sym_kTry];
   ACTIONS 10036 [sym_kVar]; ACTIONS 10326 [sym_kWhile]; ACTIONS 10328 [sym_kWith]].

(** State 1079. *)
Definition ts_parse_table_1079 : parse_row :=
  [STATE 6602 [sym_if]; STATE 6465 [sym_ifElse; sym_while; sym_repeat; sym_for; sym_foreach;
   sym_try; sym_case; sym_block; sym_asm; sym_with; sym_raise; sym_statement; sym_goto;
   sym_labeledStatement; sym__statement]; STATE 14148 [sym_ifTr; sym_ifElseTr; sym_whileTr;
   sym_repeatTr; sym_forTr; sym_foreachTr; sym_tryTr; sym_caseTr]; STATE 15738 [sym_blockTr];
   STATE 14148 [sym_asmTr; sym_withTr; sym_raiseTr; sym_statementTr; sym_gotoTr;
   sym_labeledStatementTr; sym__statementTr]; STATE 13641 [sym_assignment];
   STATE 11905 [sym_varAssignDef]; STATE 13641 [sym_varDef; sym_constDef];
   STATE 1242 [sym_label]; STATE 8002 [sym__expr; sym_exprConditional]; STATE 7363 [sym__ref;
   sym_lambda; sym_inherited; sym_exprDot; sym_exprDeref; sym_exprAs; sym_exprTpl;
   sym_exprSubscript; sym_exprCall]; STATE 8002 [sym_exprBinary; sym_exprUnary];
   STATE 7363 [sym_exprParens; sym_exprBrackets; sym__literal; sym_literalString];
   STATE 6967 [sym__literalString; sym_literalChar]; STATE 7363 [sym_literalNumber];
   STATE 7660 [sym__literalInt; sym__literalFloat]; STATE 6967 [aux_sym_literalString_repeat1];
   ACTIONS 10362 [anon_sym_SEMI]; ACTIONS 9986 [anon_sym_LBRACK]; ACTIONS 9988 [anon_sym_LPAREN];
   ACTIONS 9990 [aux_sym__literalString_token1]; ACTIONS 9992 [anon_sym_POUND];
   ACTIONS 9994 [aux_sym__literalInt_token1]; ACTIONS 9996 [aux_sym__literalInt_token2;
   aux_sym__literalInt_token3]; ACTIONS 9994 [aux_sym__literalFloat_token1];
   ACTIONS 9998 [sym_kAdd; sym_kSub]; ACTIONS 10000 [sym_kAt]; ACTIONS 10002 [sym_kTrue;
   sym_kFalse]; ACTIONS 10004 [sym_labelNumber]; ACTIONS 3 [sym__space];
   ACTIONS 5 [sym_ppDirective]; ACTIONS 3 [sym_comment]; ACTIONS 10002 [sym_ppFragmentExpr];
   ACTIONS 9990 [sym__literalStringMultiline]; ACTIONS 10006 [sym_identifier];
   ACTIONS 10008 [sym_kSpecialize]; ACTIONS 10308 [sym_kAsm]; ACTIONS 10310 [sym_kBegin];
   ACTIONS 10312 [sym_kCase]; ACTIONS 10016 [sym_kConst]; ACTIONS 10364 [sym_kElse];
   ACTIONS 10314 [sym_kFor]; ACTIONS 10020 [sym_kFunction]; ACTIONS 10316 [sym_kGoto];
   ACTIONS 10318 [sym_kIf]; ACTIONS 10026 [sym_kInherited]; ACTIONS 10002 [sym_kNil];
   ACTIONS 10000 [sym_kNot]; ACTIONS 10020 [sym_kProcedure]; ACTIONS 10320 [sym_kRaise];
   ACTIONS 10322 [sym_kRepeat]; ACTIONS 10032 [sym_kString]; ACTIONS 10324 [sym_kTry];
   ACTIONS 10036 [sym_kVar]; ACTIONS 10326 [sym_kWhile]; ACTIONS 10328 [sym_kWith]].

(** State 1080. *)
Definition ts_parse_table_1080 : parse_row :=
  [STATE 6532 [sym_if]; STATE 6512 [sym_ifElse; sym_while; sym_repeat; sym_for; sym_foreach;
   sym_try; sym_case; sym_block; sym_asm; sym_with; sym_raise; sym_statement; sym_goto;
   sym_labeledStatement; sym__statement]; STATE 15904 [sym_ifTr; sym_ifElseTr; sym_whileTr;
   sym_repeatTr; sym_forTr; sym_foreachTr; sym_tryTr; sym_caseTr]; STATE 15738 [sym_blockTr];
   STATE 15904 [sym_asmTr; sym_withTr; sym_raiseTr; sym_statementTr; sym_gotoTr;
   sym_labeledStatementTr; sym__statementTr]; STATE 13641 [sym_assignment];
   STATE 11905 [sym_varAssignDef]; STATE 13641 [sym_varDef; sym_constDef];
   STATE 1242 [sym_label]; STATE 7999 [sym__expr; sym_exprConditional]; STATE 7363 [sym__ref;
   sym_lambda; sym_inherited; sym_exprDot; sym_exprDeref; sym_exprAs; sym_exprTpl;
   sym_exprSubscript; sym_exprCall]; STATE 7999 [sym_exprBinary; sym_exprUnary];
   STATE 7363 [sym_exprParens; sym_exprBrackets; sym__literal; sym_literalString];
   STATE 6967 [sym__literalString; sym_literalChar]; STATE 7363 [sym_literalNumber];
   STATE 7660 [sym__literalInt; sym__literalFloat]; STATE 6967 [aux_sym_literalString_repeat1];
   ACTIONS 10366 [anon_sym_SEMI]; ACTIONS 9986 [anon_sym_LBRACK]; ACTIONS 9988 [anon_sym_LPAREN];
   ACTIONS 9990 [aux_sym__literalString_token1]; ACTIONS 9992 [anon_sym_POUND];
   ACTIONS 9994 [aux_sym__literalInt_token1]; ACTIONS 9996 [aux_sym__literalInt_token2;
   aux_sym__literalInt_token3]; ACTIONS 9994 [aux_sym__literalFloat_token1];
   ACTIONS 9998 [sym_kAdd; sym_kSub]; ACTIONS 10000 [sym_kAt]; ACTIONS 10002 [sym_kTrue;
   sym_kFalse]; ACTIONS 10004 [sym_labelNumber]; ACTIONS 3 [sym__space];
   ACTIONS 5 [sym_ppDirective]; ACTIONS 3 [sym_comment]; ACTIONS 10002 [sym_ppFragmentExpr];
   ACTIONS 9990 [sym__literalStringMultiline]; ACTIONS 10006 [sym_identifier];
   ACTIONS 10008 [sym_kSpecialize]; ACTIONS 10308 [sym_kAsm]; ACTIONS 10310 [sym_kBegin];
   ACTIONS 10312 [sym_kCase]; ACTIONS 10016 [sym_kConst]; ACTIONS 3290 [sym_kElse];
   ACTIONS 10314 [sym_kFor]; ACTIONS 10020 [sym_kFunction]; ACTIONS 10316 [sym_kGoto];
   ACTIONS 10318 [sym_kIf]; ACTIONS 10026 [sym_kInherited]; ACTIONS 10002 [sym_kNil];
   ACTIONS 10000 [sym_kNot]; ACTIONS 10020 [sym_kProcedure]; ACTIONS 10320 [sym_kRaise];
   ACTIONS 10322 [sym_kRepeat]; ACTIONS 10032 [sym_kString]; ACTIONS 10324 [sym_kTry];
   ACTIONS 10036 [sym_kVar]; ACTIONS 10326 [sym_kWhile]; ACTIONS 10328 [sym_kWith]].

(** State 1081. *)
Definition ts_parse_table_1081 : parse_row :=
  [STATE 6532 [sym_if]; STATE 6516 [sym_ifElse; sym_while; sym_repeat; sym_for; sym_foreach;
   sym_try; sym_case; sym_block; sym_asm; sym_with; sym_raise; sym_statement; sym_goto;
   sym_labeledStatement; sym__statement]; STATE 15932 [sym_ifTr; sym_ifElseTr; sym_whileTr;
   sym_repeatTr; sym_forTr; sym_foreachTr; sym_tryTr; sym_caseTr]; STATE 15738 [sym_blockTr];
   STATE 15932 [sym_asmTr; sym_withTr; sym_raiseTr; sym_statementTr; sym_gotoTr;
   sym_labeledStatementTr; sym__statementTr]; STATE 13641 [sym_assignment];
   STATE 11905 [sym_varAssignDef]; STATE 13641 [sym_varDef; sym_constDef];
   STATE 1242 [sym_label]; STATE 7999 [sym__expr; sym_exprConditional]; STATE 7363 [sym__ref;
   sym_lambda; sym_inherited; sym_exprDot; sym_exprDeref; sym_exprAs; sym_exprTpl;
   sym_exprSubscript; sym_exprCall]; STATE 7999 [sym_exprBinary; sym_exprUnary];
   STATE 7363 [sym_exprParens; sym_exprBrackets; sym__literal; sym_literalString];
   STATE 6967 [sym__literalString; sym_literalChar]; STATE 7363 [sym_literalNumber];
   STATE 7660 [sym__literalInt; sym__literalFloat]; STATE 6967 [aux_sym_literalString_repeat1];
   ACTIONS 10368 [anon_sym_SEMI]; ACTIONS 9986 [anon_sym_LBRACK]; ACTIONS 9988 [anon_sym_LPAREN];
   ACTIONS 9990 [aux_sym__literalString_token1]; ACTIONS 9992 [anon_sym_POUND];
   ACTIONS 9994 [aux_sym__literalInt_token1]; ACTIONS 9996 [aux_sym__literalInt_token2;
   aux_sym__literalInt_token3]; ACTIONS 9994 [aux_sym__literalFloat_token1];
   ACTIONS 9998 [sym_kAdd; sym_kSub]; ACTIONS 10000 [sym_kAt]; ACTIONS 10002 [sym_kTrue;
   sym_kFalse]; ACTIONS 10004 [sym_labelNumber]; ACTIONS 3 [sym__space];
   ACTIONS 5 [sym_ppDirective]; ACTIONS 3 [sym_comment]; ACTIONS 10002 [sym_ppFragmentExpr];
   ACTIONS 9990 [sym__literalStringMultiline]; ACTIONS 10006 [sym_identifier];
   ACTIONS 10008 [sym_kSpecialize]; ACTIONS 10308 [sym_kAsm]; ACTIONS 10310 [sym_kBegin];
   ACTIONS 10312 [sym_kCase]; ACTIONS 10016 [sym_kConst]; ACTIONS 3296 [sym_kElse];
   ACTIONS 10314 [sym_kFor]; ACTIONS 10020 [sym_kFunction]; ACTIONS 10316 [sym_kGoto];
   ACTIONS 10318 [sym_kIf]; ACTIONS 10026 [sym_kInherited]; ACTIONS 10002 [sym_kNil];
   ACTIONS 10000 [sym_kNot]; ACTIONS 10020 [sym_kProcedure]; ACTIONS 10320 [sym_kRaise];
   ACTIONS 10322 [sym_kRepeat]; ACTIONS 10032 [sym_kString]; ACTIONS 10324 [sym_kTry];
   ACTIONS 10036 [sym_kVar]; ACTIONS 10326 [sym_kWhile]; ACTIONS 10328 [sym_kWith]].

(** State 1082. *)
Definition ts_parse_table_1082 : parse_row :=
  [STATE 6532 [sym_if]; STATE 6519 [sym_ifElse; sym_while; sym_repeat; sym_for; sym_foreach;
   sym_try; sym_case; sym_block; sym_asm; sym_with; sym_raise; sym_statement; sym_goto;
   sym_labeledStatement; sym__statement]; STATE 15995 [sym_ifTr; sym_ifElseTr; sym_whileTr;
   sym_repeatTr; sym_forTr; sym_foreachTr; sym_tryTr; sym_caseTr]; STATE 15738 [sym_blockTr];
   STATE 15995 [sym_asmTr; sym_withTr; sym_raiseTr; sym_statementTr; sym_gotoTr;
   sym_labeledStatementTr; sym__statementTr]; STATE 13641 [sym_assignment];
   STATE 11905 [sym_varAssignDef]; STATE 13641 [sym_varDef; sym_constDef];
   STATE 1242 [sym_label]; STATE 7999 [sym__expr; sym_exprConditional]; STATE 7363 [sym__ref;
   sym_lambda; sym_inherited; sym_exprDot; sym_exprDeref; sym_exprAs; sym_exprTpl;
   sym_exprSubscript; sym_exprCall]; STATE 7999 [sym_exprBinary; sym_exprUnary];
   STATE 7363 [sym_exprParens; sym_exprBrackets; sym__literal; sym_literalString];
   STATE 6967 [sym__literalString; sym_literalChar]; STATE 7363 [sym_literalNumber];
   STATE 7660 [sym__literalInt; sym__literalFloat]; STATE 6967 [aux_sym_literalString_repeat1];
   ACTIONS 10370 [anon_sym_SEMI]; ACTIONS 9986 [anon_sym_LBRACK]; ACTIONS 9988 [anon_sym_LPAREN];
   ACTIONS 9990 [aux_sym__literalString_token1]; ACTIONS 9992 [anon_sym_POUND];
   ACTIONS 9994 [aux_sym__literalInt_token1]; ACTIONS 9996 [aux_sym__literalInt_token2;
   aux_sym__literalInt_token3]; ACTIONS 9994 [aux_sym__literalFloat_token1];
   ACTIONS 9998 [sym_kAdd; sym_kSub]; ACTIONS 10000 [sym_kAt]; ACTIONS 10002 [sym_kTrue;
   sym_kFalse]; ACTIONS 10004 [sym_labelNumber]; ACTIONS 3 [sym__space];
   ACTIONS 5 [sym_ppDirective]; ACTIONS 3 [sym_comment]; ACTIONS 10002 [sym_ppFragmentExpr];
   ACTIONS 9990 [sym__literalStringMultiline]; ACTIONS 10006 [sym_identifier];
   ACTIONS 10008 [sym_kSpecialize]; ACTIONS 10308 [sym_kAsm]; ACTIONS 10310 [sym_kBegin];
   ACTIONS 10312 [sym_kCase]; ACTIONS 10016 [sym_kConst]; ACTIONS 3304 [sym_kElse];
   ACTIONS 10314 [sym_kFor]; ACTIONS 10020 [sym_kFunction]; ACTIONS 10316 [sym_kGoto];
   ACTIONS 10318 [sym_kIf]; ACTIONS 10026 [sym_kInherited]; ACTIONS 10002 [sym_kNil];
   ACTIONS 10000 [sym_kNot]; ACTIONS 10020 [sym_kProcedure]; ACTIONS 10320 [sym_kRaise];
   ACTIONS 10322 [sym_kRepeat]; ACTIONS 10032 [sym_kString]; ACTIONS 10324 [sym_kTry];
   ACTIONS 10036 [sym_kVar]; ACTIONS 10326 [sym_kWhile]; ACTIONS 10328 [sym_kWith]].

(** State 1083. *)
Definition ts_parse_table_1083 : parse_row :=
  [STATE 13286 [sym_if]; STATE 13291 [sym_ifElse; sym_while; sym_repeat; sym_for; sym_foreach;
   sym_try; sym_case; sym_block; sym_asm; sym_with; sym_raise; sym_statement; sym_goto;
   sym_labeledStatement; sym__statement]; STATE 15874 [sym_ifTr; sym_ifElseTr; sym_whileTr;
   sym_repeatTr; sym_forTr; sym_foreachTr; sym_tryTr; sym_caseTr]; STATE 15738 [sym_blockTr];
   STATE 15874 [sym_asmTr; sym_withTr; sym_raiseTr; sym_statementTr; sym_gotoTr;
   sym_labeledStatementTr; sym__statementTr]; STATE 13914 [sym_assignment];
   STATE 11905 [sym_varAssignDef]; STATE 13914 [sym_varDef; sym_constDef];
   STATE 1253 [sym_label]; STATE 8001 [sym__expr; sym_exprConditional]; STATE 7363 [sym__ref;
   sym_lambda; sym_inherited; sym_exprDot; sym_exprDeref; sym_exprAs; sym_exprTpl;
   sym_exprSubscript; sym_exprCall]; STATE 8001 [sym_exprBinary; sym_exprUnary];
   STATE 7363 [sym_exprParens; sym_exprBrackets; sym__literal; sym_literalString];
   STATE 6967 [sym__literalString; sym_literalChar]; STATE 7363 [sym_literalNumber];
   STATE 7660 [sym__literalInt; sym__literalFloat]; STATE 6967 [aux_sym_literalString_repeat1];
   ACTIONS 10372 [anon_sym_SEMI]; ACTIONS 9986 [anon_sym_LBRACK]; ACTIONS 9988 [anon_sym_LPAREN];
   ACTIONS 9990 [aux_sym__literalString_token1]; ACTIONS 9992 [anon_sym_POUND];
   ACTIONS 9994 [aux_sym__literalInt_token1]; ACTIONS 9996 [aux_sym__literalInt_token2;
   aux_sym__literalInt_token3]; ACTIONS 9994 [aux_sym__literalFloat_token1];
   ACTIONS 9998 [sym_kAdd; sym_kSub]; ACTIONS 10000 [sym_kAt]; ACTIONS 10002 [sym_kTrue;
   sym_kFalse]; ACTIONS 10004 [sym_labelNumber]; ACTIONS 3 [sym__space];
   ACTIONS 5 [sym_ppDirective]; ACTIONS 3 [sym_comment]; ACTIONS 10002 [sym_ppFragmentExpr];
   ACTIONS 9990 [sym__literalStringMultiline]; ACTIONS 10006 [sym_identifier];
   ACTIONS 10008 [sym_kSpecialize]; ACTIONS 10374 [sym_kAsm]; ACTIONS 10376 [sym_kBegin];
   ACTIONS 10378 [sym_kCase]; ACTIONS 10016 [sym_kConst]; ACTIONS 3272 [sym_kElse];
   ACTIONS 10380 [sym_kFor]; ACTIONS 10020 [sym_kFunction]; ACTIONS 10382 [sym_kGoto];
   ACTIONS 10384 [sym_kIf]; ACTIONS 10026 [sym_kInherited]; ACTIONS 10002 [sym_kNil];
   ACTIONS 10000 [sym_kNot]; ACTIONS 10020 [sym_kProcedure]; ACTIONS 10386 [sym_kRaise];
   ACTIONS 10388 [sym_kRepeat]; ACTIONS 10032 [sym_kString]; ACTIONS 10390 [sym_kTry];
   ACTIONS 10036 [sym_kVar]; ACTIONS 10392 [sym_kWhile]; ACTIONS 10394 [sym_kWith]].

(** State 1084. *)
Definition ts_parse_table_1084 : parse_row :=
  [STATE 13286 [sym_if]; STATE 13314 [sym_ifElse; sym_while; sym_repeat; sym_for; sym_foreach;
   sym_try; sym_case; sym_block; sym_asm; sym_with; sym_raise; sym_statement; sym_goto;
   sym_labeledStatement; sym__statement]; STATE 15916 [sym_ifTr; sym_ifElseTr; sym_whileTr;
   sym_repeatTr; sym_forTr; sym_foreachTr; sym_tryTr; sym_caseTr]; STATE 15738 [sym_blockTr];
   STATE 15916 [sym_asmTr; sym_withTr; sym_raiseTr; sym_statementTr; sym_gotoTr;
   sym_labeledStatementTr; sym__statementTr]; STATE 13914 [sym_assignment];
   STATE 11905 [sym_varAssignDef]; STATE 13914 [sym_varDef; sym_constDef];
   STATE 1253 [sym_label]; STATE 8001 [sym__expr; sym_exprConditional]; STATE 7363 [sym__ref;
   sym_lambda; sym_inherited; sym_exprDot; sym_exprDeref; sym_exprAs; sym_exprTpl;
   sym_exprSubscript; sym_exprCall]; STATE 8001 [sym_exprBinary; sym_exprUnary];
   STATE 7363 [sym_exprParens; sym_exprBrackets; sym__literal; sym_literalString];
   STATE 6967 [sym__literalString; sym_literalChar]; STATE 7363 [sym_literalNumber];
   STATE 7660 [sym__literalInt; sym__literalFloat]; STATE 6967 [aux_sym_literalString_repeat1];
   ACTIONS 10396 [anon_sym_SEMI]; ACTIONS 9986 [anon_sym_LBRACK]; ACTIONS 9988 [anon_sym_LPAREN];
   ACTIONS 9990 [aux_sym__literalString_token1]; ACTIONS 9992 [anon_sym_POUND];
   ACTIONS 9994 [aux_sym__literalInt_token1]; ACTIONS 9996 [aux_sym__literalInt_token2;
   aux_sym__literalInt_token3]; ACTIONS 9994 [aux_sym__literalFloat_token1];
   ACTIONS 9998 [sym_kAdd; sym_kSub]; ACTIONS 10000 [sym_kAt]; ACTIONS 10002 [sym_kTrue;
   sym_kFalse]; ACTIONS 10004 [sym_labelNumber]; ACTIONS 3 [sym__space];
   ACTIONS 5 [sym_ppDirective]; ACTIONS 3 [sym_comment]; ACTIONS 10002 [sym_ppFragmentExpr];
   ACTIONS 9990 [sym__literalStringMultiline]; ACTIONS 10006 [sym_identifier];
   ACTIONS 10008 [sym_kSpecialize]; ACTIONS 10374 [sym_kAsm]; ACTIONS 10376 [sym_kBegin];
   ACTIONS 10378 [sym_kCase]; ACTIONS 10016 [sym_kConst]; ACTIONS 3278 [sym_kElse];
   ACTIONS 10380 [sym_kFor]; ACTIONS 10020 [sym_kFunction]; ACTIONS 10382 [sym_kGoto];
   ACTIONS 10384 [sym_kIf]; ACTIONS 10026 [sym_kInherited]; ACTIONS 10002 [sym_kNil];
   ACTIONS 10000 [sym_kNot]; ACTIONS 10020 [sym_kProcedure]; ACTIONS 10386 [sym_kRaise];
   ACTIONS 10388 [sym_kRepeat]; ACTIONS 10032 [sym_kString]; ACTIONS 10390 [sym_kTry];
   ACTIONS 10036 [sym_kVar]; ACTIONS 10392 [sym_kWhile]; ACTIONS 10394 [sym_kWith]].

(** State 1085. *)
Definition ts_parse_table_1085 : parse_row :=
  [ACTIONS 10398 [anon_sym_SEMI; anon_sym_COMMA; anon_sym_LBRACK];
   ACTIONS 10401 [anon_sym_LPAREN]; ACTIONS 10398 [aux_sym__literalString_token1;
   anon_sym_POUND]; ACTIONS 10401 [aux_sym__literalInt_token1];
   ACTIONS 10398 [aux_sym__literalInt_token2; aux_sym__literalInt_token3];
   ACTIONS 10401 [aux_sym__literalFloat_token1]; ACTIONS 10398 [aux_sym_ppUsesBlock_token1;
   aux_sym_ppUsesBlock_token2; aux_sym_ppUsesBlock_token3]; ACTIONS 10401 [sym_kAdd; sym_kSub];
   ACTIONS 10398 [sym_kAt; sym_kTrue; sym_kFalse]; ACTIONS 3 [sym__space];
   ACTIONS 5 [sym_ppDirective]; ACTIONS 3 [sym_comment]; ACTIONS 10398 [sym_ppFragmentExpr;
   sym__literalStringMultiline; sym_identifier; sym_kDefault; sym_kNodefault; sym_kDispId;
   sym_kGeneric; sym_kSpecialize; sym_kOperator; sym_kPublic; sym_kStatic; sym_kVirtual;
   sym_kAbstract; sym_kDynamic; sym_kOverride; sym_kOverload; sym_kReintroduce; sym_kStdcall;
   sym_kCdecl; sym_kCppdecl; sym_kPascal; sym_kRegister; sym_kMwpascal];
   ACTIONS 10404 [sym_kExternal]; ACTIONS 10398 [sym_kMessage; sym_kDeprecated;
   sym_kExperimental; sym_kPlatform; sym_kUnimplemented; sym_kCvar; sym_kExport; sym_kFar;
   sym_kNear; sym_kSafecall; sym_kAssembler; sym_kNostackframe; sym_kInterrupt; sym_kNoreturn;
   sym_kIocheck; sym_kLocal; sym_kHardfloat; sym_kSoftfloat; sym_kMs_abi_default;
   sym_kMs_abi_cdecl; sym_kSaveregisters; sym_kSysv_abi_default; sym_kSysv_abi_cdecl;
   sym_kVectorcall; sym_kVarargs; sym_kWinapi; sym_kAlias; sym_kAsm; sym_kBegin; sym_kCase;
   sym_kClass; sym_kConst; sym_kConstructor; sym_kDestructor; sym_kExports; sym_kFor;
   sym_kFunction; sym_kGoto; sym_kIf; sym_kInherited; sym_kInline; sym_kLabel; sym_kNil;
   sym_kNot; sym_kProcedure; sym_kProperty; sym_kRaise; sym_kRepeat; sym_kResourcestring;
   sym_kString; sym_kThreadvar; sym_kTry; sym_kType; sym_kUses; sym_kVar; sym_kWhile; sym_kWith]].

(** State 1086. *)
Definition ts_parse_table_1086 : parse_row :=
  [STATE 13286 [sym_if]; STATE 13481 [sym_ifElse; sym_while; sym_repeat; sym_for; sym_foreach;
   sym_try; sym_case; sym_block; sym_asm; sym_with; sym_raise; sym_statement; sym_goto;
   sym_labeledStatement; sym__statement]; STATE 15171 [sym_ifTr; sym_ifElseTr; sym_whileTr;
   sym_repeatTr; sym_forTr; sym_foreachTr; sym_tryTr; sym_caseTr]; STATE 15738 [sym_blockTr];
   STATE 15171 [sym_asmTr; sym_withTr; sym_raiseTr; sym_statementTr; sym_gotoTr;
   sym_labeledStatementTr; sym__statementTr]; STATE 13914 [sym_assignment];
   STATE 11905 [sym_varAssignDef]; STATE 13914 [sym_varDef; sym_constDef];
   STATE 1253 [sym_label]; STATE 8001 [sym__expr; sym_exprConditional]; STATE 7363 [sym__ref;
   sym_lambda; sym_inherited; sym_exprDot; sym_exprDeref; sym_exprAs; sym_exprTpl;
   sym_exprSubscript; sym_exprCall]; STATE 8001 [sym_exprBinary; sym_exprUnary];
   STATE 7363 [sym_exprParens; sym_exprBrackets; sym__literal; sym_literalString];
   STATE 6967 [sym__literalString; sym_literalChar]; STATE 7363 [sym_literalNumber];
   STATE 7660 [sym__literalInt; sym__literalFloat]; STATE 6967 [aux_sym_literalString_repeat1];
   ACTIONS 10406 [anon_sym_SEMI]; ACTIONS 9986 [anon_sym_LBRACK]; ACTIONS 9988 [anon_sym_LPAREN];
   ACTIONS 9990 [aux_sym__literalString_token1]; ACTIONS 9992 [anon_sym_POUND];
   ACTIONS 9994 [aux_sym__literalInt_token1]; ACTIONS 9996 [aux_sym__literalInt_token2;
   aux_sym__literalInt_token3]; ACTIONS 9994 [aux_sym__literalFloat_token1];
   ACTIONS 9998 [sym_kAdd; sym_kSub]; ACTIONS 10000 [sym_kAt]; ACTIONS 10002 [sym_kTrue;
   sym_kFalse]; ACTIONS 10004 [sym_labelNumber]; ACTIONS 3 [sym__space];
   ACTIONS 5 [sym_ppDirective]; ACTIONS 3 [sym_comment]; ACTIONS 10002 [sym_ppFragmentExpr];
   ACTIONS 9990 [sym__literalStringMultiline]; ACTIONS 10006 [sym_identifier];
   ACTIONS 10008 [sym_kSpecialize]; ACTIONS 10374 [sym_kAsm]; ACTIONS 10376 [sym_kBegin];
   ACTIONS 10378 [sym_kCase]; ACTIONS 10016 [sym_kConst]; ACTIONS 3282 [sym_kElse];
   ACTIONS 10380 [sym_kFor]; ACTIONS 10020 [sym_kFunction]; ACTIONS 10382 [sym_kGoto];
   ACTIONS 10384 [sym_kIf]; ACTIONS 10026 [sym_kInherited]; ACTIONS 10002 [sym_kNil];
   ACTIONS 10000 [sym_kNot]; ACTIONS 10020 [sym_kProcedure]; ACTIONS 10386 [sym_kRaise];
   ACTIONS 10388 [sym_kRepeat]; ACTIONS 10032 [sym_kString]; ACTIONS 10390 [sym_kTry];
   ACTIONS 10036 [sym_kVar]; ACTIONS 10392 [sym_kWhile]; ACTIONS 10394 [sym_kWith]].

(** State 1087. *)
Definition ts_parse_table_1087 : parse_row :=
  [STATE 6447 [sym_if]; STATE 6384 [sym_ifElse; sym_while; sym_repeat; sym_for; sym_foreach;
   sym_try; sym_case; sym_block; sym_asm; sym_with; sym_raise; sym_statement; sym_goto;
   sym_labeledStatement; sym__statement]; STATE 14127 [sym_ifTr; sym_ifElseTr; sym_whileTr;
   sym_repeatTr; sym_forTr; sym_foreachTr; sym_tryTr; sym_caseTr]; STATE 15738 [sym_blockTr];
   STATE 14127 [sym_asmTr; sym_withTr; sym_raiseTr; sym_statementTr; sym_gotoTr;
   sym_labeledStatementTr; sym__statementTr]; STATE 13152 [sym_assignment];
   STATE 11905 [sym_varAssignDef]; STATE 13152 [sym_varDef; sym_constDef];
   STATE 1267 [sym_label]; STATE 7993 [sym__expr; sym_exprConditional]; STATE 7363 [sym__ref;
   sym_lambda; sym_inherited; sym_exprDot; sym_exprDeref; sym_exprAs; sym_exprTpl;
   sym_exprSubscript; sym_exprCall]; STATE 7993 [sym_exprBinary; sym_exprUnary];
   STATE 7363 [sym_exprParens; sym_exprBrackets; sym__literal; sym_literalString];
   STATE 6967 [sym__literalString; sym_literalChar]; STATE 7363 [sym_literalNumber];
   STATE 7660 [sym__literalInt; sym__literalFloat]; STATE 6967 [aux_sym_literalString_repeat1];
   ACTIONS 10408 [anon_sym_SEMI]; ACTIONS 9986 [anon_sym_LBRACK]; ACTIONS 9988 [anon_sym_LPAREN];
   ACTIONS 9990 [aux_sym__literalString_token1]; ACTIONS 9992 [anon_sym_POUND];
   ACTIONS 9994 [aux_sym__literalInt_token1]; ACTIONS 9996 [aux_sym__literalInt_token2;
   aux_sym__literalInt_token3]; ACTIONS 9994 [aux_sym__literalFloat_token1];
   ACTIONS 9998 [sym_kAdd; sym_kSub]; ACTIONS 10000 [sym_kAt]; ACTIONS 10002 [sym_kTrue;
   sym_kFalse]; ACTIONS 10004 [sym_labelNumber]; ACTIONS 3 [sym__space];
   ACTIONS 5 [sym_ppDirective]; ACTIONS 3 [sym_comment]; ACTIONS 10002 [sym_ppFragmentExpr];
   ACTIONS 9990 [sym__literalStringMultiline]; ACTIONS 10006 [sym_identifier];
   ACTIONS 10008 [sym_kSpecialize]; ACTIONS 10136 [sym_kAsm]; ACTIONS 10138 [sym_kBegin];
   ACTIONS 10140 [sym_kCase]; ACTIONS 10016 [sym_kConst]; ACTIONS 10410 [sym_kElse];
   ACTIONS 10142 [sym_kFor]; ACTIONS 10020 [sym_kFunction]; ACTIONS 10144 [sym_kGoto];
   ACTIONS 10146 [sym_kIf]; ACTIONS 10026 [sym_kInherited]; ACTIONS 10002 [sym_kNil];
   ACTIONS 10000 [sym_kNot]; ACTIONS 10020 [sym_kProcedure]; ACTIONS 10148 [sym_kRaise];
   ACTIONS 10150 [sym_kRepeat]; ACTIONS 10032 [sym_kString]; ACTIONS 10152 [sym_kTry];
   ACTIONS 10036 [sym_kVar]; ACTIONS 10154 [sym_kWhile]; ACTIONS 10156 [sym_kWith]].

(** State 1088. *)
Definition ts_parse_table_1088 : parse_row :=
  [STATE 13286 [sym_if]; STATE 13075 [sym_ifElse; sym_while; sym_repeat; sym_for; sym_foreach;
   sym_try; sym_case; sym_block; sym_asm; sym_with; sym_raise; sym_statement; sym_goto];
   STATE 12998 [sym_labeledStatement]; STATE 13075 [sym__statement]; STATE 14171 [sym_ifTr;
   sym_ifElseTr; sym_whileTr; sym_repeatTr; sym_forTr; sym_foreachTr; sym_tryTr; sym_caseTr];
   STATE 15738 [sym_blockTr]; STATE 14171 [sym_asmTr; sym_withTr; sym_raiseTr; sym_statementTr;
   sym_gotoTr]; STATE 14168 [sym_labeledStatementTr]; STATE 14171 [sym__statementTr];
   STATE 13914 [sym_assignment]; STATE 11905 [sym_varAssignDef]; STATE 13914 [sym_varDef;
   sym_constDef]; STATE 1253 [sym_label]; STATE 8001 [sym__expr; sym_exprConditional];
   STATE 7363 [sym__ref; sym_lambda; sym_inherited; sym_exprDot; sym_exprDeref; sym_exprAs;
   sym_exprTpl; sym_exprSubscript; sym_exprCall]; STATE 8001 [sym_exprBinary; sym_exprUnary];
   STATE 7363 [sym_exprParens; sym_exprBrackets; sym__literal; sym_literalString];
   STATE 6967 [sym__literalString; sym_literalChar]; STATE 7363 [sym_literalNumber];
   STATE 7660 [sym__literalInt; sym__literalFloat]; STATE 6967 [aux_sym_literalString_repeat1];
   ACTIONS 10412 [anon_sym_SEMI]; ACTIONS 9986 [anon_sym_LBRACK]; ACTIONS 9988 [anon_sym_LPAREN];
   ACTIONS 9990 [aux_sym__literalString_token1]; ACTIONS 9992 [anon_sym_POUND];
   ACTIONS 9994 [aux_sym__literalInt_token1]; ACTIONS 9996 [aux_sym__literalInt_token2;
   aux_sym__literalInt_token3]; ACTIONS 9994 [aux_sym__literalFloat_token1];
   ACTIONS 9998 [sym_kAdd; sym_kSub]; ACTIONS 10000 [sym_kAt]; ACTIONS 10002 [sym_kTrue;
   sym_kFalse]; ACTIONS 10004 [sym_labelNumber]; ACTIONS 3 [sym__space];
   ACTIONS 5 [sym_ppDirective]; ACTIONS 3 [sym_comment]; ACTIONS 10002 [sym_ppFragmentExpr];
   ACTIONS 9990 [sym__literalStringMultiline]; ACTIONS 10006 [sym_identifier];
   ACTIONS 10008 [sym_kSpecialize]; ACTIONS 10374 [sym_kAsm]; ACTIONS 10376 [sym_kBegin];
   ACTIONS 10378 [sym_kCase]; ACTIONS 10016 [sym_kConst]; ACTIONS 3286 [sym_kElse];
   ACTIONS 10380 [sym_kFor]; ACTIONS 10020 [sym_kFunction]; ACTIONS 10382 [sym_kGoto];
   ACTIONS 10384 [sym_kIf]; ACTIONS 10026 [sym_kInherited]; ACTIONS 10002 [sym_kNil];
   ACTIONS 10000 [sym_kNot]; ACTIONS 10020 [sym_kProcedure]; ACTIONS 10386 [sym_kRaise];
   ACTIONS 10388 [sym_kRepeat]; ACTIONS 10032 [sym_kString]; ACTIONS 10390 [sym_kTry];
   ACTIONS 10036 [sym_kVar]; ACTIONS 10392 [sym_kWhile]; ACTIONS 10394 [sym_kWith]].

(** State 1089. *)
Definition ts_parse_table_1089 : parse_row :=
  [STATE 13286 [sym_if]; STATE 13153 [sym_ifElse; sym_while; sym_repeat; sym_for; sym_foreach;
   sym_try; sym_case; sym_block; sym_asm; sym_with; sym_raise; sym_statement; sym_goto;
   sym_labeledStatement; sym__statement]; STATE 15904 [sym_ifTr; sym_ifElseTr; sym_whileTr;
   sym_repeatTr; sym_forTr; sym_foreachTr; sym_tryTr; sym_caseTr]; STATE 15738 [sym_blockTr];
   STATE 15904 [sym_asmTr; sym_withTr; sym_raiseTr; sym_statementTr; sym_gotoTr;
   sym_labeledStatementTr; sym__statementTr]; STATE 13914 [sym_assignment];
   STATE 11905 [sym_varAssignDef]; STATE 13914 [sym_varDef; sym_constDef];
   STATE 1253 [sym_label]; STATE 8001 [sym__expr; sym_exprConditional]; STATE 7363 [sym__ref;
   sym_lambda; sym_inherited; sym_exprDot; sym_exprDeref; sym_exprAs; sym_exprTpl;
   sym_exprSubscript; sym_exprCall]; STATE 8001 [sym_exprBinary; sym_exprUnary];
   STATE 7363 [sym_exprParens; sym_exprBrackets; sym__literal; sym_literalString];
   STATE 6967 [sym__literalString; sym_literalChar]; STATE 7363 [sym_literalNumber];
   STATE 7660 [sym__literalInt; sym__literalFloat]; STATE 6967 [aux_sym_literalString_repeat1];
   ACTIONS 10414 [anon_sym_SEMI]; ACTIONS 9986 [anon_sym_LBRACK]; ACTIONS 9988 [anon_sym_LPAREN];
   ACTIONS 9990 [aux_sym__literalString_token1]; ACTIONS 9992 [anon_sym_POUND];
   ACTIONS 9994 [aux_sym__literalInt_token1]; ACTIONS 9996 [aux_sym__literalInt_token2;
   aux_sym__literalInt_token3]; ACTIONS 9994 [aux_sym__literalFloat_token1];
   ACTIONS 9998 [sym_kAdd; sym_kSub]; ACTIONS 10000 [sym_kAt]; ACTIONS 10002 [sym_kTrue;
   sym_kFalse]; ACTIONS 10004 [sym_labelNumber]; ACTIONS 3 [sym__space];
   ACTIONS 5 [sym_ppDirective]; ACTIONS 3 [sym_comment]; ACTIONS 10002 [sym_ppFragmentExpr];
   ACTIONS 9990 [sym__literalStringMultiline]; ACTIONS 10006 [sym_identifier];
   ACTIONS 10008 [sym_kSpecialize]; ACTIONS 10374 [sym_kAsm]; ACTIONS 10376 [sym_kBegin];
   ACTIONS 10378 [sym_kCase]; ACTIONS 10016 [sym_kConst]; ACTIONS 3290 [sym_kElse];
   ACTIONS 10380 [sym_kFor]; ACTIONS 10020 [sym_kFunction]; ACTIONS 10382 [sym_kGoto];
   ACTIONS 10384 [sym_kIf]; ACTIONS 10026 [sym_kInherited]; ACTIONS 10002 [sym_kNil];
   ACTIONS 10000 [sym_kNot]; ACTIONS 10020 [sym_kProcedure]; ACTIONS 10386 [sym_kRaise];
   ACTIONS 10388 [sym_kRepeat]; ACTIONS 10032 [sym_kString]; ACTIONS 10390 [sym_kTry];
   ACTIONS 10036 [sym_kVar]; ACTIONS 10392 [sym_kWhile]; ACTIONS 10394 [sym_kWith]].

(** State 1090. *)
Definition ts_parse_table_1090 : parse_row :=
  [STATE 13286 [sym_if]; STATE 13174 [sym_ifElse; sym_while; sym_repeat; sym_for; sym_foreach;
   sym_try; sym_case; sym_block; sym_asm; sym_with; sym_raise; sym_statement; sym_goto;
   sym_labeledStatement; sym__statement]; STATE 15932 [sym_ifTr; sym_ifElseTr; sym_whileTr;
   sym_repeatTr; sym_forTr; sym_foreachTr; sym_tryTr; sym_caseTr]; STATE 15738 [sym_blockTr];
   STATE 15932 [sym_asmTr; sym_withTr; sym_raiseTr; sym_statementTr; sym_gotoTr;
   sym_labeledStatementTr; sym__statementTr]; STATE 13914 [sym_assignment];
   STATE 11905 [sym_varAssignDef]; STATE 13914 [sym_varDef; sym_constDef];
   STATE 1253 [sym_label]; STATE 8001 [sym__expr; sym_exprConditional]; STATE 7363 [sym__ref;
   sym_lambda; sym_inherited; sym_exprDot; sym_exprDeref; sym_exprAs; sym_exprTpl;
   sym_exprSubscript; sym_exprCall]; STATE 8001 [sym_exprBinary; sym_exprUnary];
   STATE 7363 [sym_exprParens; sym_exprBrackets; sym__literal; sym_literalString];
   STATE 6967 [sym__literalString; sym_literalChar]; STATE 7363 [sym_literalNumber];
   STATE 7660 [sym__literalInt; sym__literalFloat]; STATE 6967 [aux_sym_literalString_repeat1];
   ACTIONS 10416 [anon_sym_SEMI]; ACTIONS 9986 [anon_sym_LBRACK]; ACTIONS 9988 [anon_sym_LPAREN];
   ACTIONS 9990 [aux_sym__literalString_token1]; ACTIONS 9992 [anon_sym_POUND];
   ACTIONS 9994 [aux_sym__literalInt_token1]; ACTIONS 9996 [aux_sym__literalInt_token2;
   aux_sym__literalInt_token3]; ACTIONS 9994 [aux_sym__literalFloat_token1];
   ACTIONS 9998 [sym_kAdd; sym_kSub]; ACTIONS 10000 [sym_kAt]; ACTIONS 10002 [sym_kTrue;
   sym_kFalse]; ACTIONS 10004 [sym_labelNumber]; ACTIONS 3 [sym__space];
   ACTIONS 5 [sym_ppDirective]; ACTIONS 3 [sym_comment]; ACTIONS 10002 [sym_ppFragmentExpr];
   ACTIONS 9990 [sym__literalStringMultiline]; ACTIONS 10006 [sym_identifier];
   ACTIONS 10008 [sym_kSpecialize]; ACTIONS 10374 [sym_kAsm]; ACTIONS 10376 [sym_kBegin];
   ACTIONS 10378 [sym_kCase]; ACTIONS 10016 [sym_kConst]; ACTIONS 3296 [sym_kElse];
   ACTIONS 10380 [sym_kFor]; ACTIONS 10020 [sym_kFunction]; ACTIONS 10382 [sym_kGoto];
   ACTIONS 10384 [sym_kIf]; ACTIONS 10026 [sym_kInherited]; ACTIONS 10002 [sym_kNil];
   ACTIONS 10000 [sym_kNot]; ACTIONS 10020 [sym_kProcedure]; ACTIONS 10386 [sym_kRaise];
   ACTIONS 10388 [sym_kRepeat]; ACTIONS 10032 [sym_kString]; ACTIONS 10390 [sym_kTry];
   ACTIONS 10036 [sym_kVar]; ACTIONS 10392 [sym_kWhile]; ACTIONS 10394 [sym_kWith]].

(** State 1091. *)
Definition ts_parse_table_1091 : parse_row :=
  [STATE 13286 [sym_if]; STATE 13761 [sym_ifElse; sym_while; sym_repeat; sym_for; sym_foreach;
   sym_try; sym_case; sym_block; sym_asm; sym_with; sym_raise; sym_statement; sym_goto;
   sym_labeledStatement; sym__statement]; STATE 15995 [sym_ifTr; sym_ifElseTr; sym_whileTr;
   sym_repeatTr; sym_forTr; sym_foreachTr; sym_tryTr; sym_caseTr]; STATE 15738 [sym_blockTr];
   STATE 15995 [sym_asmTr; sym_withTr; sym_raiseTr; sym_statementTr; sym_gotoTr;
   sym_labeledStatementTr; sym__statementTr]; STATE 13914 [sym_assignment];
   STATE 11905 [sym_varAssignDef]; STATE 13914 [sym_varDef; sym_constDef];
   STATE 1253 [sym_label]; STATE 8001 [sym__expr; sym_exprConditional]; STATE 7363 [sym__ref;
   sym_lambda; sym_inherited; sym_exprDot; sym_exprDeref; sym_exprAs; sym_exprTpl;
   sym_exprSubscript; sym_exprCall]; STATE 8001 [sym_exprBinary; sym_exprUnary];
   STATE 7363 [sym_exprParens; sym_exprBrackets; sym__literal; sym_literalString];
   STATE 6967 [sym__literalString; sym_literalChar]; STATE 7363 [sym_literalNumber];
   STATE 7660 [sym__literalInt; sym__literalFloat]; STATE 6967 [aux_sym_literalString_repeat1];
   ACTIONS 10418 [anon_sym_SEMI]; ACTIONS 9986 [anon_sym_LBRACK]; ACTIONS 9988 [anon_sym_LPAREN];
   ACTIONS 9990 [aux_sym__literalString_token1]; ACTIONS 9992 [anon_sym_POUND];
   ACTIONS 9994 [aux_sym__literalInt_token1]; ACTIONS 9996 [aux_sym__literalInt_token2;
   aux_sym__literalInt_token3]; ACTIONS 9994 [aux_sym__literalFloat_token1];
   ACTIONS 9998 [sym_kAdd; sym_kSub]; ACTIONS 10000 [sym_kAt]; ACTIONS 10002 [sym_kTrue;
   sym_kFalse]; ACTIONS 10004 [sym_labelNumber]; ACTIONS 3 [sym__space];
   ACTIONS 5 [sym_ppDirective]; ACTIONS 3 [sym_comment]; ACTIONS 10002 [sym_ppFragmentExpr];
   ACTIONS 9990 [sym__literalStringMultiline]; ACTIONS 10006 [sym_identifier];
   ACTIONS 10008 [sym_kSpecialize]; ACTIONS 10374 [sym_kAsm]; ACTIONS 10376 [sym_kBegin];
   ACTIONS 10378 [sym_kCase]; ACTIONS 10016 [sym_kConst]; ACTIONS 3304 [sym_kElse];
   ACTIONS 10380 [sym_kFor]; ACTIONS 10020 [sym_kFunction]; ACTIONS 10382 [sym_kGoto];
   ACTIONS 10384 [sym_kIf]; ACTIONS 10026 [sym_kInherited]; ACTIONS 10002 [sym_kNil];
   ACTIONS 10000 [sym_kNot]; ACTIONS 10020 [sym_kProcedure]; ACTIONS 10386 [sym_kRaise];
   ACTIONS 10388 [sym_kRepeat]; ACTIONS 10032 [sym_kString]; ACTIONS 10390 [sym_kTry];
   ACTIONS 10036 [sym_kVar]; ACTIONS 10392 [sym_kWhile]; ACTIONS 10394 [sym_kWith]].

(** State 1092. *)
Definition ts_parse_table_1092 : parse_row :=
  [STATE 1277 [sym_if]; STATE 1304 [sym_ifElse; sym_while; sym_repeat; sym_for; sym_foreach;
   sym_try; sym_case; sym_block; sym_asm; sym_with; sym_raise; sym_statement; sym_goto;
   sym_labeledStatement; sym__statement]; STATE 15171 [sym_ifTr; sym_ifElseTr; sym_whileTr;
   sym_repeatTr; sym_forTr; sym_foreachTr; sym_tryTr; sym_caseTr]; STATE 15738 [sym_blockTr];
   STATE 15171 [sym_asmTr; sym_withTr; sym_raiseTr; sym_statementTr; sym_gotoTr;
   sym_labeledStatementTr; sym__statementTr]; STATE 13593 [sym_assignment];
   STATE 11905 [sym_varAssignDef]; STATE 13593 [sym_varDef; sym_constDef];
   STATE 1216 [sym_label]; STATE 8058 [sym__expr; sym_exprConditional]; STATE 7363 [sym__ref;
   sym_lambda; sym_inherited; sym_exprDot; sym_exprDeref; sym_exprAs; sym_exprTpl;
   sym_exprSubscript; sym_exprCall]; STATE 8058 [sym_exprBinary; sym_exprUnary];
   STATE 7363 [sym_exprParens; sym_exprBrackets; sym__literal; sym_literalString];
   STATE 6967 [sym__literalString; sym_literalChar]; STATE 7363 [sym_literalNumber];
   STATE 7660 [sym__literalInt; sym__literalFloat]; STATE 6967 [aux_sym_literalString_repeat1];
   ACTIONS 10420 [anon_sym_SEMI]; ACTIONS 9986 [anon_sym_LBRACK]; ACTIONS 9988 [anon_sym_LPAREN];
   ACTIONS 9990 [aux_sym__literalString_token1]; ACTIONS 9992 [anon_sym_POUND];
   ACTIONS 9994 [aux_sym__literalInt_token1]; ACTIONS 9996 [aux_sym__literalInt_token2;
   aux_sym__literalInt_token3]; ACTIONS 9994 [aux_sym__literalFloat_token1];
   ACTIONS 9998 [sym_kAdd; sym_kSub]; ACTIONS 10000 [sym_kAt]; ACTIONS 10002 [sym_kTrue;
   sym_kFalse]; ACTIONS 10004 [sym_labelNumber]; ACTIONS 3 [sym__space];
   ACTIONS 5 [sym_ppDirective]; ACTIONS 3 [sym_comment]; ACTIONS 10002 [sym_ppFragmentExpr];
   ACTIONS 9990 [sym__literalStringMultiline]; ACTIONS 10006 [sym_identifier];
   ACTIONS 10008 [sym_kSpecialize]; ACTIONS 10422 [sym_kAsm]; ACTIONS 10424 [sym_kBegin];
   ACTIONS 10426 [sym_kCase]; ACTIONS 10016 [sym_kConst]; ACTIONS 3282 [sym_kElse];
   ACTIONS 10428 [sym_kFor]; ACTIONS 10020 [sym_kFunction]; ACTIONS 10430 [sym_kGoto];
   ACTIONS 10432 [sym_kIf]; ACTIONS 10026 [sym_kInherited]; ACTIONS 10002 [sym_kNil];
   ACTIONS 10000 [sym_kNot]; ACTIONS 10020 [sym_kProcedure]; ACTIONS 10434 [sym_kRaise];
   ACTIONS 10436 [sym_kRepeat]; ACTIONS 10032 [sym_kString]; ACTIONS 10438 [sym_kTry];
   ACTIONS 10036 [sym_kVar]; ACTIONS 10440 [sym_kWhile]; ACTIONS 10442 [sym_kWith]].

(** State 1093. *)
Definition ts_parse_table_1093 : parse_row :=
  [STATE 1277 [sym_if]; STATE 1229 [sym_ifElse; sym_while; sym_repeat; sym_for; sym_foreach;
   sym_try; sym_case; sym_block; sym_asm; sym_with; sym_raise; sym_statement; sym_goto];
   STATE 1227 [sym_labeledStatement]; STATE 1229 [sym__statement]; STATE 14171 [sym_ifTr;
   sym_ifElseTr; sym_whileTr; sym_repeatTr; sym_forTr; sym_foreachTr; sym_tryTr; sym_caseTr];
   STATE 15738 [sym_blockTr]; STATE 14171 [sym_asmTr; sym_withTr; sym_raiseTr; sym_statementTr;
   sym_gotoTr]; STATE 14168 [sym_labeledStatementTr]; STATE 14171 [sym__statementTr];
   STATE 13593 [sym_assignment]; STATE 11905 [sym_varAssignDef]; STATE 13593 [sym_varDef;
   sym_constDef]; STATE 1216 [sym_label]; STATE 8058 [sym__expr; sym_exprConditional];
   STATE 7363 [sym__ref; sym_lambda; sym_inherited; sym_exprDot; sym_exprDeref; sym_exprAs;
   sym_exprTpl; sym_exprSubscript; sym_exprCall]; STATE 8058 [sym_exprBinary; sym_exprUnary];
   STATE 7363 [sym_exprParens; sym_exprBrackets; sym__literal; sym_literalString];
   STATE 6967 [sym__literalString; sym_literalChar]; STATE 7363 [sym_literalNumber];
   STATE 7660 [sym__literalInt; sym__literalFloat]; STATE 6967 [aux_sym_literalString_repeat1];
   ACTIONS 10444 [anon_sym_SEMI]; ACTIONS 9986 [anon_sym_LBRACK]; ACTIONS 9988 [anon_sym_LPAREN];
   ACTIONS 9990 [aux_sym__literalString_token1]; ACTIONS 9992 [anon_sym_POUND];
   ACTIONS 9994 [aux_sym__literalInt_token1]; ACTIONS 9996 [aux_sym__literalInt_token2;
   aux_sym__literalInt_token3]; ACTIONS 9994 [aux_sym__literalFloat_token1];
   ACTIONS 9998 [sym_kAdd; sym_kSub]; ACTIONS 10000 [sym_kAt]; ACTIONS 10002 [sym_kTrue;
   sym_kFalse]; ACTIONS 10004 [sym_labelNumber]; ACTIONS 3 [sym__space];
   ACTIONS 5 [sym_ppDirective]; ACTIONS 3 [sym_comment]; ACTIONS 10002 [sym_ppFragmentExpr];
   ACTIONS 9990 [sym__literalStringMultiline]; ACTIONS 10006 [sym_identifier];
   ACTIONS 10008 [sym_kSpecialize]; ACTIONS 10422 [sym_kAsm]; ACTIONS 10424 [sym_kBegin];
   ACTIONS 10426 [sym_kCase]; ACTIONS 10016 [sym_kConst]; ACTIONS 3286 [sym_kElse];
   ACTIONS 10428 [sym_kFor]; ACTIONS 10020 [sym_kFunction]; ACTIONS 10430 [sym_kGoto];
   ACTIONS 10432 [sym_kIf]; ACTIONS 10026 [sym_kInherited]; ACTIONS 10002 [sym_kNil];
   ACTIONS 10000 [sym_kNot]; ACTIONS 10020 [sym_kProcedure]; ACTIONS 10434 [sym_kRaise];
   ACTIONS 10436 [sym_kRepeat]; ACTIONS 10032 [sym_kString]; ACTIONS 10438 [sym_kTry];
   ACTIONS 10036 [sym_kVar]; ACTIONS 10440 [sym_kWhile]; ACTIONS 10442 [sym_kWith]].

(** State 1094. *)
Definition ts_parse_table_1094 : parse_row :=
  [STATE 6052 [sym_if]; STATE 6121 [sym_ifElse; sym_while; sym_repeat; sym_for; sym_foreach;
   sym_try; sym_case; sym_block; sym_asm; sym_with; sym_raise; sym_statement; sym_goto;
   sym__statement]; STATE 13815 [sym_ifTr; sym_ifElseTr; sym_whileTr; sym_repeatTr; sym_forTr;
   sym_foreachTr; sym_tryTr; sym_caseTr]; STATE 13195 [sym_blockTr]; STATE 13815 [sym_asmTr;
   sym_withTr; sym_raiseTr; sym_statementTr; sym_gotoTr; sym__statementTr];
   STATE 12583 [sym_assignment]; STATE 11921 [sym_varAssignDef]; STATE 12583 [sym_varDef;
   sym_constDef]; STATE 1100 [sym_label]; STATE 7850 [sym__expr; sym_exprConditional];
   STATE 7326 [sym__ref; sym_lambda; sym_inherited; sym_exprDot; sym_exprDeref; sym_exprAs;
   sym_exprTpl; sym_exprSubscript; sym_exprCall]; STATE 7850 [sym_exprBinary; sym_exprUnary];
   STATE 7326 [sym_exprParens; sym_exprBrackets; sym__literal; sym_literalString];
   STATE 6591 [sym__literalString; sym_literalChar]; STATE 7326 [sym_literalNumber];
   STATE 7474 [sym__literalInt; sym__literalFloat];
   STATE 1100 [aux_sym_labeledStatement_repeat1]; STATE 6591 [aux_sym_literalString_repeat1];
   ACTIONS 10446 [anon_sym_SEMI]; ACTIONS 9754 [anon_sym_LBRACK]; ACTIONS 9756 [anon_sym_LPAREN];
   ACTIONS 9758 [aux_sym__literalString_token1]; ACTIONS 9760 [anon_sym_POUND];
   ACTIONS 9762 [aux_sym__literalInt_token1]; ACTIONS 9764 [aux_sym__literalInt_token2;
   aux_sym__literalInt_token3]; ACTIONS 9762 [aux_sym__literalFloat_token1];
   ACTIONS 9766 [sym_kAdd; sym_kSub]; ACTIONS 9768 [sym_kAt]; ACTIONS 9770 [sym_kTrue;
   sym_kFalse]; ACTIONS 9772 [sym_labelNumber]; ACTIONS 3 [sym__space];
   ACTIONS 5 [sym_ppDirective]; ACTIONS 3 [sym_comment]; ACTIONS 9770 [sym_ppFragmentExpr];
   ACTIONS 9758 [sym__literalStringMultiline]; ACTIONS 9774 [sym_identifier];
   ACTIONS 9776 [sym_kSpecialize]; ACTIONS 9778 [sym_kAsm]; ACTIONS 9780 [sym_kBegin];
   ACTIONS 9782 [sym_kCase]; ACTIONS 9784 [sym_kConst]; ACTIONS 4301 [sym_kElse];
   ACTIONS 9786 [sym_kFor]; ACTIONS 9788 [sym_kFunction]; ACTIONS 9790 [sym_kGoto];
   ACTIONS 9792 [sym_kIf]; ACTIONS 9794 [sym_kInherited]; ACTIONS 9770 [sym_kNil];
   ACTIONS 9768 [sym_kNot]; ACTIONS 9788 [sym_kProcedure]; ACTIONS 9796 [sym_kRaise];
   ACTIONS 9798 [sym_kRepeat]; ACTIONS 9800 [sym_kString]; ACTIONS 9802 [sym_kTry];
   ACTIONS 4301 [sym_kUntil]; ACTIONS 9804 [sym_kVar]; ACTIONS 9806 [sym_kWhile];
   ACTIONS 9808 [sym_kWith]].

(** State 1095. *)
Definition ts_parse_table_1095 : parse_row :=
  [STATE 1277 [sym_if]; STATE 1240 [sym_ifElse; sym_while; sym_repeat; sym_for; sym_foreach;
   sym_try; sym_case; sym_block; sym_asm; sym_with; sym_raise; sym_statement; sym_goto;
   sym_labeledStatement; sym__statement]; STATE 15904 [sym_ifTr; sym_ifElseTr; sym_whileTr;
   sym_repeatTr; sym_forTr; sym_foreachTr; sym_tryTr; sym_caseTr]; STATE 15738 [sym_blockTr];
   STATE 15904 [sym_asmTr; sym_withTr; sym_raiseTr; sym_statementTr; sym_gotoTr;
   sym_labeledStatementTr; sym__statementTr]; STATE 13593 [sym_assignment];
   STATE 11905 [sym_varAssignDef]; STATE 13593 [sym_varDef; sym_constDef];
   STATE 1216 [sym_label]; STATE 8058 [sym__expr; sym_exprConditional]; STATE 7363 [sym__ref;
   sym_lambda; sym_inherited; sym_exprDot; sym_exprDeref; sym_exprAs; sym_exprTpl;
   sym_exprSubscript; sym_exprCall]; STATE 8058 [sym_exprBinary; sym_exprUnary];
   STATE 7363 [sym_exprParens; sym_exprBrackets; sym__literal; sym_literalString];
   STATE 6967 [sym__literalString; sym_literalChar]; STATE 7363 [sym_literalNumber];
   STATE 7660 [sym__literalInt; sym__literalFloat]; STATE 6967 [aux_sym_literalString_repeat1];
   ACTIONS 10448 [anon_sym_SEMI]; ACTIONS 9986 [anon_sym_LBRACK]; ACTIONS 9988 [anon_sym_LPAREN];
   ACTIONS 9990 [aux_sym__literalString_token1]; ACTIONS 9992 [anon_sym_POUND];
   ACTIONS 9994 [aux_sym__literalInt_token1]; ACTIONS 9996 [aux_sym__literalInt_token2;
   aux_sym__literalInt_token3]; ACTIONS 9994 [aux_sym__literalFloat_token1];
   ACTIONS 9998 [sym_kAdd; sym_kSub]; ACTIONS 10000 [sym_kAt]; ACTIONS 10002 [sym_kTrue;
   sym_kFalse]; ACTIONS 10004 [sym_labelNumber]; ACTIONS 3 [sym__space];
   ACTIONS 5 [sym_ppDirective]; ACTIONS 3 [sym_comment]; ACTIONS 10002 [sym_ppFragmentExpr];
   ACTIONS 9990 [sym__literalStringMultiline]; ACTIONS 10006 [sym_identifier];
   ACTIONS 10008 [sym_kSpecialize]; ACTIONS 10422 [sym_kAsm]; ACTIONS 10424 [sym_kBegin];
   ACTIONS 10426 [sym_kCase]; ACTIONS 10016 [sym_kConst]; ACTIONS 3290 [sym_kElse];
   ACTIONS 10428 [sym_kFor]; ACTIONS 10020 [sym_kFunction]; ACTIONS 10430 [sym_kGoto];
   ACTIONS 10432 [sym_kIf]; ACTIONS 10026 [sym_kInherited]; ACTIONS 10002 [sym_kNil];
   ACTIONS 10000 [sym_kNot]; ACTIONS 10020 [sym_kProcedure]; ACTIONS 10434 [sym_kRaise];
   ACTIONS 10436 [sym_kRepeat]; ACTIONS 10032 [sym_kString]; ACTIONS 10438 [sym_kTry];
   ACTIONS 10036 [sym_kVar]; ACTIONS 10440 [sym_kWhile]; ACTIONS 10442 [sym_kWith]].

(** State 1096. *)
Definition ts_parse_table_1096 : parse_row :=
  [STATE 1277 [sym_if]; STATE 1245 [sym_ifElse; sym_while; sym_repeat; sym_for; sym_foreach;
   sym_try; sym_case; sym_block; sym_asm; sym_with; sym_raise; sym_statement; sym_goto;
   sym_labeledStatement; sym__statement]; STATE 15932 [sym_ifTr; sym_ifElseTr; sym_whileTr;
   sym_repeatTr; sym_forTr; sym_foreachTr; sym_tryTr; sym_caseTr]; STATE 15738 [sym_blockTr];
   STATE 15932 [sym_asmTr; sym_withTr; sym_raiseTr; sym_statementTr; sym_gotoTr;
   sym_labeledStatementTr; sym__statementTr]; STATE 13593 [sym_assignment];
   STATE 11905 [sym_varAssignDef]; STATE 13593 [sym_varDef; sym_constDef];
   STATE 1216 [sym_label]; STATE 8058 [sym__expr; sym_exprConditional]; STATE 7363 [sym__ref;
   sym_lambda; sym_inherited; sym_exprDot; sym_exprDeref; sym_exprAs; sym_exprTpl;
   sym_exprSubscript; sym_exprCall]; STATE 8058 [sym_exprBinary; sym_exprUnary];
   STATE 7363 [sym_exprParens; sym_exprBrackets; sym__literal; sym_literalString];
   STATE 6967 [sym__literalString; sym_literalChar]; STATE 7363 [sym_literalNumber];
   STATE 7660 [sym__literalInt; sym__literalFloat]; STATE 6967 [aux_sym_literalString_repeat1];
   ACTIONS 10450 [anon_sym_SEMI]; ACTIONS 9986 [anon_sym_LBRACK]; ACTIONS 9988 [anon_sym_LPAREN];
   ACTIONS 9990 [aux_sym__literalString_token1]; ACTIONS 9992 [anon_sym_POUND];
   ACTIONS 9994 [aux_sym__literalInt_token1]; ACTIONS 9996 [aux_sym__literalInt_token2;
   aux_sym__literalInt_token3]; ACTIONS 9994 [aux_sym__literalFloat_token1];
   ACTIONS 9998 [sym_kAdd; sym_kSub]; ACTIONS 10000 [sym_kAt]; ACTIONS 10002 [sym_kTrue;
   sym_kFalse]; ACTIONS 10004 [sym_labelNumber]; ACTIONS 3 [sym__space];
   ACTIONS 5 [sym_ppDirective]; ACTIONS 3 [sym_comment]; ACTIONS 10002 [sym_ppFragmentExpr];
   ACTIONS 9990 [sym__literalStringMultiline]; ACTIONS 10006 [sym_identifier];
   ACTIONS 10008 [sym_kSpecialize]; ACTIONS 10422 [sym_kAsm]; ACTIONS 10424 [sym_kBegin];
   ACTIONS 10426 [sym_kCase]; ACTIONS 10016 [sym_kConst]; ACTIONS 3296 [sym_kElse];
   ACTIONS 10428 [sym_kFor]; ACTIONS 10020 [sym_kFunction]; ACTIONS 10430 [sym_kGoto];
   ACTIONS 10432 [sym_kIf]; ACTIONS 10026 [sym_kInherited]; ACTIONS 10002 [sym_kNil];
   ACTIONS 10000 [sym_kNot]; ACTIONS 10020 [sym_kProcedure]; ACTIONS 10434 [sym_kRaise];
   ACTIONS 10436 [sym_kRepeat]; ACTIONS 10032 [sym_kString]; ACTIONS 10438 [sym_kTry];
   ACTIONS 10036 [sym_kVar]; ACTIONS 10440 [sym_kWhile]; ACTIONS 10442 [sym_kWith]].

(** State 1097. *)
Definition ts_parse_table_1097 : parse_row :=
  [STATE 1277 [sym_if]; STATE 1251 [sym_ifElse; sym_while; sym_repeat; sym_for; sym_foreach;
   sym_try; sym_case; sym_block; sym_asm; sym_with; sym_raise; sym_statement; sym_goto;
   sym_labeledStatement; sym__statement]; STATE 15995 [sym_ifTr; sym_ifElseTr; sym_whileTr;
   sym_repeatTr; sym_forTr; sym_foreachTr; sym_tryTr; sym_caseTr]; STATE 15738 [sym_blockTr];
   STATE 15995 [sym_asmTr; sym_withTr; sym_raiseTr; sym_statementTr; sym_gotoTr;
   sym_labeledStatementTr; sym__statementTr]; STATE 13593 [sym_assignment];
   STATE 11905 [sym_varAssignDef]; STATE 13593 [sym_varDef; sym_constDef];
   STATE 1216 [sym_label]; STATE 8058 [sym__expr; sym_exprConditional]; STATE 7363 [sym__ref;
   sym_lambda; sym_inherited; sym_exprDot; sym_exprDeref; sym_exprAs; sym_exprTpl;
   sym_exprSubscript; sym_exprCall]; STATE 8058 [sym_exprBinary; sym_exprUnary];
   STATE 7363 [sym_exprParens; sym_exprBrackets; sym__literal; sym_literalString];
   STATE 6967 [sym__literalString; sym_literalChar]; STATE 7363 [sym_literalNumber];
   STATE 7660 [sym__literalInt; sym__literalFloat]; STATE 6967 [aux_sym_literalString_repeat1];
   ACTIONS 10452 [anon_sym_SEMI]; ACTIONS 9986 [anon_sym_LBRACK]; ACTIONS 9988 [anon_sym_LPAREN];
   ACTIONS 9990 [aux_sym__literalString_token1]; ACTIONS 9992 [anon_sym_POUND];
   ACTIONS 9994 [aux_sym__literalInt_token1]; ACTIONS 9996 [aux_sym__literalInt_token2;
   aux_sym__literalInt_token3]; ACTIONS 9994 [aux_sym__literalFloat_token1];
   ACTIONS 9998 [sym_kAdd; sym_kSub]; ACTIONS 10000 [sym_kAt]; ACTIONS 10002 [sym_kTrue;
   sym_kFalse]; ACTIONS 10004 [sym_labelNumber]; ACTIONS 3 [sym__space];
   ACTIONS 5 [sym_ppDirective]; ACTIONS 3 [sym_comment]; ACTIONS 10002 [sym_ppFragmentExpr];
   ACTIONS 9990 [sym__literalStringMultiline]; ACTIONS 10006 [sym_identifier];
   ACTIONS 10008 [sym_kSpecialize]; ACTIONS 10422 [sym_kAsm]; ACTIONS 10424 [sym_kBegin];
   ACTIONS 10426 [sym_kCase]; ACTIONS 10016 [sym_kConst]; ACTIONS 3304 [sym_kElse];
   ACTIONS 10428 [sym_kFor]; ACTIONS 10020 [sym_kFunction]; ACTIONS 10430 [sym_kGoto];
   ACTIONS 10432 [sym_kIf]; ACTIONS 10026 [sym_kInherited]; ACTIONS 10002 [sym_kNil];
   ACTIONS 10000 [sym_kNot]; ACTIONS 10020 [sym_kProcedure]; ACTIONS 10434 [sym_kRaise];
   ACTIONS 10436 [sym_kRepeat]; ACTIONS 10032 [sym_kString]; ACTIONS 10438 [sym_kTry];
   ACTIONS 10036 [sym_kVar]; ACTIONS 10440 [sym_kWhile]; ACTIONS 10442 [sym_kWith]].

(** State 1098. *)
Definition ts_parse_table_1098 : parse_row :=
  [STATE 1277 [sym_if]; STATE 1302 [sym_ifElse; sym_while; sym_repeat; sym_for; sym_foreach;
   sym_try; sym_case; sym_block; sym_asm; sym_with; sym_raise; sym_statement; sym_goto;
   sym_labeledStatement; sym__statement]; STATE 15916 [sym_ifTr; sym_ifElseTr; sym_whileTr;
   sym_repeatTr; sym_forTr; sym_foreachTr; sym_tryTr; sym_caseTr]; STATE 15738 [sym_blockTr];
   STATE 15916 [sym_asmTr; sym_withTr; sym_raiseTr; sym_statementTr; sym_gotoTr;
   sym_labeledStatementTr; sym__statementTr]; STATE 13593 [sym_assignment];
   STATE 11905 [sym_varAssignDef]; STATE 13593 [sym_varDef; sym_constDef];
   STATE 1216 [sym_label]; STATE 8058 [sym__expr; sym_exprConditional]; STATE 7363 [sym__ref;
   sym_lambda; sym_inherited; sym_exprDot; sym_exprDeref; sym_exprAs; sym_exprTpl;
   sym_exprSubscript; sym_exprCall]; STATE 8058 [sym_exprBinary; sym_exprUnary];
   STATE 7363 [sym_exprParens; sym_exprBrackets; sym__literal; sym_literalString];
   STATE 6967 [sym__literalString; sym_literalChar]; STATE 7363 [sym_literalNumber];
   STATE 7660 [sym__literalInt; sym__literalFloat]; STATE 6967 [aux_sym_literalString_repeat1];
   ACTIONS 10454 [anon_sym_SEMI]; ACTIONS 9986 [anon_sym_LBRACK]; ACTIONS 9988 [anon_sym_LPAREN];
   ACTIONS 9990 [aux_sym__literalString_token1]; ACTIONS 9992 [anon_sym_POUND];
   ACTIONS 9994 [aux_sym__literalInt_token1]; ACTIONS 9996 [aux_sym__literalInt_token2;
   aux_sym__literalInt_token3]; ACTIONS 9994 [aux_sym__literalFloat_token1];
   ACTIONS 9998 [sym_kAdd; sym_kSub]; ACTIONS 10000 [sym_kAt]; ACTIONS 10002 [sym_kTrue;
   sym_kFalse]; ACTIONS 10004 [sym_labelNumber]; ACTIONS 3 [sym__space];
   ACTIONS 5 [sym_ppDirective]; ACTIONS 3 [sym_comment]; ACTIONS 10002 [sym_ppFragmentExpr];
   ACTIONS 9990 [sym__literalStringMultiline]; ACTIONS 10006 [sym_identifier];
   ACTIONS 10008 [sym_kSpecialize]; ACTIONS 10422 [sym_kAsm]; ACTIONS 10424 [sym_kBegin];
   ACTIONS 10426 [sym_kCase]; ACTIONS 10016 [sym_kConst]; ACTIONS 3278 [sym_kElse];
   ACTIONS 10428 [sym_kFor]; ACTIONS 10020 [sym_kFunction]; ACTIONS 10430 [sym_kGoto];
   ACTIONS 10432 [sym_kIf]; ACTIONS 10026 [sym_kInherited]; ACTIONS 10002 [sym_kNil];
   ACTIONS 10000 [sym_kNot]; ACTIONS 10020 [sym_kProcedure]; ACTIONS 10434 [sym_kRaise];
   ACTIONS 10436 [sym_kRepeat]; ACTIONS 10032 [sym_kString]; ACTIONS 10438 [sym_kTry];
   ACTIONS 10036 [sym_kVar]; ACTIONS 10440 [sym_kWhile]; ACTIONS 10442 [sym_kWith]].

(** State 1099. *)
Definition ts_parse_table_1099 : parse_row :=
  [STATE 6602 [sym_if]; STATE 6764 [sym_ifElse; sym_while; sym_repeat; sym_for; sym_foreach;
   sym_try; sym_case; sym_block; sym_asm; sym_with; sym_raise; sym_statement; sym_goto;
   sym_labeledStatement; sym__statement]; STATE 14148 [sym_ifTr; sym_ifElseTr; sym_whileTr;
   sym_repeatTr; sym_forTr; sym_foreachTr; sym_tryTr; sym_caseTr]; STATE 15738 [sym_blockTr];
   STATE 14148 [sym_asmTr; sym_withTr; sym_raiseTr; sym_statementTr; sym_gotoTr;
   sym_labeledStatementTr; sym__statementTr]; STATE 13971 [sym_assignment];
   STATE 11905 [sym_varAssignDef]; STATE 13971 [sym_varDef; sym_constDef];
   STATE 1230 [sym_label]; STATE 7989 [sym__expr; sym_exprConditional]; STATE 7363 [sym__ref;
   sym_lambda; sym_inherited; sym_exprDot; sym_exprDeref; sym_exprAs; sym_exprTpl;
   sym_exprSubscript; sym_exprCall]; STATE 7989 [sym_exprBinary; sym_exprUnary];
   STATE 7363 [sym_exprParens; sym_exprBrackets; sym__literal; sym_literalString];
   STATE 6967 [sym__literalString; sym_literalChar]; STATE 7363 [sym_literalNumber];
   STATE 7660 [sym__literalInt; sym__literalFloat]; STATE 6967 [aux_sym_literalString_repeat1];
   ACTIONS 10456 [anon_sym_SEMI]; ACTIONS 9986 [anon_sym_LBRACK]; ACTIONS 9988 [anon_sym_LPAREN];
   ACTIONS 9990 [aux_sym__literalString_token1]; ACTIONS 9992 [anon_sym_POUND];
   ACTIONS 9994 [aux_sym__literalInt_token1]; ACTIONS 9996 [aux_sym__literalInt_token2;
   aux_sym__literalInt_token3]; ACTIONS 9994 [aux_sym__literalFloat_token1];
   ACTIONS 9998 [sym_kAdd; sym_kSub]; ACTIONS 10000 [sym_kAt]; ACTIONS 10002 [sym_kTrue;
   sym_kFalse]; ACTIONS 10004 [sym_labelNumber]; ACTIONS 3 [sym__space];
   ACTIONS 5 [sym_ppDirective]; ACTIONS 3 [sym_comment]; ACTIONS 10002 [sym_ppFragmentExpr];
   ACTIONS 9990 [sym__literalStringMultiline]; ACTIONS 10006 [sym_identifier];
   ACTIONS 10008 [sym_kSpecialize]; ACTIONS 10044 [sym_kAsm]; ACTIONS 10046 [sym_kBegin];
   ACTIONS 10048 [sym_kCase]; ACTIONS 10016 [sym_kConst]; ACTIONS 10364 [sym_kElse];
   ACTIONS 10050 [sym_kFor]; ACTIONS 10020 [sym_kFunction]; ACTIONS 10052 [sym_kGoto];
   ACTIONS 10458 [sym_kIf]; ACTIONS 10026 [sym_kInherited]; ACTIONS 10002 [sym_kNil];
   ACTIONS 10000 [sym_kNot]; ACTIONS 10020 [sym_kProcedure]; ACTIONS 10056 [sym_kRaise];
   ACTIONS 10058 [sym_kRepeat]; ACTIONS 10032 [sym_kString]; ACTIONS 10060 [sym_kTry];
   ACTIONS 10036 [sym_kVar]; ACTIONS 10062 [sym_kWhile]; ACTIONS 10064 [sym_kWith]].

(** State 1100. *)
Definition ts_parse_table_1100 : parse_row :=
  [STATE 6052 [sym_if]; STATE 6125 [sym_ifElse; sym_while; sym_repeat; sym_for; sym_foreach;
   sym_try; sym_case; sym_block; sym_asm; sym_with; sym_raise; sym_statement; sym_goto;
   sym__statement]; STATE 13255 [sym_ifTr; sym_ifElseTr; sym_whileTr; sym_repeatTr; sym_forTr;
   sym_foreachTr; sym_tryTr; sym_caseTr]; STATE 13195 [sym_blockTr]; STATE 13255 [sym_asmTr;
   sym_withTr; sym_raiseTr; sym_statementTr; sym_gotoTr; sym__statementTr];
   STATE 12583 [sym_assignment]; STATE 11921 [sym_varAssignDef]; STATE 12583 [sym_varDef;
   sym_constDef]; STATE 6127 [sym_label]; STATE 7850 [sym__expr; sym_exprConditional];
   STATE 7326 [sym__ref; sym_lambda; sym_inherited; sym_exprDot; sym_exprDeref; sym_exprAs;
   sym_exprTpl; sym_exprSubscript; sym_exprCall]; STATE 7850 [sym_exprBinary; sym_exprUnary];
   STATE 7326 [sym_exprParens; sym_exprBrackets; sym__literal; sym_literalString];
   STATE 6591 [sym__literalString; sym_literalChar]; STATE 7326 [sym_literalNumber];
   STATE 7474 [sym__literalInt; sym__literalFloat];
   STATE 6127 [aux_sym_labeledStatement_repeat1]; STATE 6591 [aux_sym_literalString_repeat1];
   ACTIONS 10460 [anon_sym_SEMI]; ACTIONS 9754 [anon_sym_LBRACK]; ACTIONS 9756 [anon_sym_LPAREN];
   ACTIONS 9758 [aux_sym__literalString_token1]; ACTIONS 9760 [anon_sym_POUND];
   ACTIONS 9762 [aux_sym__literalInt_token1]; ACTIONS 9764 [aux_sym__literalInt_token2;
   aux_sym__literalInt_token3]; ACTIONS 9762 [aux_sym__literalFloat_token1];
   ACTIONS 9766 [sym_kAdd; sym_kSub]; ACTIONS 9768 [sym_kAt]; ACTIONS 9770 [sym_kTrue;
   sym_kFalse]; ACTIONS 9772 [sym_labelNumber]; ACTIONS 3 [sym__space];
   ACTIONS 5 [sym_ppDirective]; ACTIONS 3 [sym_comment]; ACTIONS 9770 [sym_ppFragmentExpr];
   ACTIONS 9758 [sym__literalStringMultiline]; ACTIONS 9774 [sym_identifier];
   ACTIONS 9776 [sym_kSpecialize]; ACTIONS 9778 [sym_kAsm]; ACTIONS 9780 [sym_kBegin];
   ACTIONS 9782 [sym_kCase]; ACTIONS 9784 [sym_kConst]; ACTIONS 4439 [sym_kElse];
   ACTIONS 9786 [sym_kFor]; ACTIONS 9788 [sym_kFunction]; ACTIONS 9790 [sym_kGoto];
   ACTIONS 9792 [sym_kIf]; ACTIONS 9794 [sym_kInherited]; ACTIONS 9770 [sym_kNil];
   ACTIONS 9768 [sym_kNot]; ACTIONS 9788 [sym_kProcedure]; ACTIONS 9796 [sym_kRaise];
   ACTIONS 9798 [sym_kRepeat]; ACTIONS 9800 [sym_kString]; ACTIONS 9802 [sym_kTry];
   ACTIONS 4439 [sym_kUntil]; ACTIONS 9804 [sym_kVar]; ACTIONS 9806 [sym_kWhile];
   ACTIONS 9808 [sym_kWith]].

(** State 1101. *)
Definition ts_parse_table_1101 : parse_row :=
  [STATE 6273 [sym_if]; STATE 6289 [sym_ifElse; sym_while; sym_repeat; sym_for; sym_foreach;
   sym_try; sym_case; sym_block; sym_asm; sym_with; sym_raise; sym_statement; sym_goto;
   sym_labeledStatement; sym__statement]; STATE 14244 [sym_ifTr; sym_ifElseTr; sym_whileTr;
   sym_repeatTr; sym_forTr; sym_foreachTr; sym_tryTr; sym_caseTr]; STATE 14967 [sym_blockTr];
   STATE 14244 [sym_asmTr; sym_withTr; sym_raiseTr; sym_statementTr; sym_gotoTr;
   sym_labeledStatementTr; sym__statementTr]; STATE 13420 [sym_assignment];
   STATE 11684 [sym_varAssignDef]; STATE 13420 [sym_varDef; sym_constDef];
   STATE 1260 [sym_label]; STATE 8128 [sym__expr; sym_exprConditional]; STATE 7533 [sym__ref;
   sym_lambda; sym_inherited; sym_exprDot; sym_exprDeref; sym_exprAs; sym_exprTpl;
   sym_exprSubscript; sym_exprCall]; STATE 8128 [sym_exprBinary; sym_exprUnary];
   STATE 7533 [sym_exprParens; sym_exprBrackets; sym__literal; sym_literalString];
   STATE 6915 [sym__literalString; sym_literalChar]; STATE 7533 [sym_literalNumber];
   STATE 7570 [sym__literalInt; sym__literalFloat]; STATE 6915 [aux_sym_literalString_repeat1];
   ACTIONS 9904 [anon_sym_SEMI]; ACTIONS 927 [anon_sym_LBRACK]; ACTIONS 929 [anon_sym_LPAREN];
   ACTIONS 931 [aux_sym__literalString_token1]; ACTIONS 933 [anon_sym_POUND];
   ACTIONS 935 [aux_sym__literalInt_token1]; ACTIONS 937 [aux_sym__literalInt_token2;
   aux_sym__literalInt_token3]; ACTIONS 935 [aux_sym__literalFloat_token1];
   ACTIONS 939 [sym_kAdd; sym_kSub]; ACTIONS 941 [sym_kAt]; ACTIONS 943 [sym_kTrue; sym_kFalse];
   ACTIONS 10188 [sym_labelNumber]; ACTIONS 3 [sym__space]; ACTIONS 5 [sym_ppDirective];
   ACTIONS 3 [sym_comment]; ACTIONS 943 [sym_ppFragmentExpr];
   ACTIONS 931 [sym__literalStringMultiline]; ACTIONS 10190 [sym_identifier];
   ACTIONS 949 [sym_kSpecialize]; ACTIONS 951 [sym_kAsm]; ACTIONS 953 [sym_kBegin];
   ACTIONS 955 [sym_kCase]; ACTIONS 957 [sym_kConst]; ACTIONS 959 [sym_kFor];
   ACTIONS 961 [sym_kFunction]; ACTIONS 963 [sym_kGoto]; ACTIONS 965 [sym_kIf];
   ACTIONS 967 [sym_kInherited]; ACTIONS 943 [sym_kNil]; ACTIONS 941 [sym_kNot];
   ACTIONS 961 [sym_kProcedure]; ACTIONS 969 [sym_kRaise]; ACTIONS 971 [sym_kRepeat];
   ACTIONS 973 [sym_kString]; ACTIONS 975 [sym_kTry]; ACTIONS 3290 [sym_kUntil];
   ACTIONS 979 [sym_kVar]; ACTIONS 981 [sym_kWhile]; ACTIONS 983 [sym_kWith]].

(** State 1102. *)
Definition ts_parse_table_1102 : parse_row :=
  [STATE 6273 [sym_if]; STATE 6291 [sym_ifElse; sym_while; sym_repeat; sym_for; sym_foreach;
   sym_try; sym_case; sym_block; sym_asm; sym_with; sym_raise; sym_statement; sym_goto;
   sym_labeledStatement; sym__statement]; STATE 15243 [sym_ifTr; sym_ifElseTr; sym_whileTr;
   sym_repeatTr; sym_forTr; sym_foreachTr; sym_tryTr; sym_caseTr]; STATE 14967 [sym_blockTr];
   STATE 15243 [sym_asmTr; sym_withTr; sym_raiseTr; sym_statementTr; sym_gotoTr;
   sym_labeledStatementTr; sym__statementTr]; STATE 13420 [sym_assignment];
   STATE 11684 [sym_varAssignDef]; STATE 13420 [sym_varDef; sym_constDef];
   STATE 1260 [sym_label]; STATE 8128 [sym__expr; sym_exprConditional]; STATE 7533 [sym__ref;
   sym_lambda; sym_inherited; sym_exprDot; sym_exprDeref; sym_exprAs; sym_exprTpl;
   sym_exprSubscript; sym_exprCall]; STATE 8128 [sym_exprBinary; sym_exprUnary];
   STATE 7533 [sym_exprParens; sym_exprBrackets; sym__literal; sym_literalString];
   STATE 6915 [sym__literalString; sym_literalChar]; STATE 7533 [sym_literalNumber];
   STATE 7570 [sym__literalInt; sym__literalFloat]; STATE 6915 [aux_sym_literalString_repeat1];
   ACTIONS 9906 [anon_sym_SEMI]; ACTIONS 927 [anon_sym_LBRACK]; ACTIONS 929 [anon_sym_LPAREN];
   ACTIONS 931 [aux_sym__literalString_token1]; ACTIONS 933 [anon_sym_POUND];
   ACTIONS 935 [aux_sym__literalInt_token1]; ACTIONS 937 [aux_sym__literalInt_token2;
   aux_sym__literalInt_token3]; ACTIONS 935 [aux_sym__literalFloat_token1];
   ACTIONS 939 [sym_kAdd; sym_kSub]; ACTIONS 941 [sym_kAt]; ACTIONS 943 [sym_kTrue; sym_kFalse];
   ACTIONS 10188 [sym_labelNumber]; ACTIONS 3 [sym__space]; ACTIONS 5 [sym_ppDirective];
   ACTIONS 3 [sym_comment]; ACTIONS 943 [sym_ppFragmentExpr];
   ACTIONS 931 [sym__literalStringMultiline]; ACTIONS 10190 [sym_identifier];
   ACTIONS 949 [sym_kSpecialize]; ACTIONS 951 [sym_kAsm]; ACTIONS 953 [sym_kBegin];
   ACTIONS 955 [sym_kCase]; ACTIONS 957 [sym_kConst]; ACTIONS 959 [sym_kFor];
   ACTIONS 961 [sym_kFunction]; ACTIONS 963 [sym_kGoto]; ACTIONS 965 [sym_kIf];
   ACTIONS 967 [sym_kInherited]; ACTIONS 943 [sym_kNil]; ACTIONS 941 [sym_kNot];
   ACTIONS 961 [sym_kProcedure]; ACTIONS 969 [sym_kRaise]; ACTIONS 971 [sym_kRepeat];
   ACTIONS 973 [sym_kString]; ACTIONS 975 [sym_kTry]; ACTIONS 3296 [sym_kUntil];
   ACTIONS 979 [sym_kVar]; ACTIONS 981 [sym_kWhile]; ACTIONS 983 [sym_kWith]].

(** State 1103. *)
Definition ts_parse_table_1103 : parse_row :=
  [STATE 6273 [sym_if]; STATE 6300 [sym_ifElse; sym_while; sym_repeat; sym_for; sym_foreach;
   sym_try; sym_case; sym_block; sym_asm; sym_with; sym_raise; sym_statement; sym_goto;
   sym_labeledStatement; sym__statement]; STATE 15355 [sym_ifTr; sym_ifElseTr; sym_whileTr;
   sym_repeatTr; sym_forTr; sym_foreachTr; sym_tryTr; sym_caseTr]; STATE 14967 [sym_blockTr];
   STATE 15355 [sym_asmTr; sym_withTr; sym_raiseTr; sym_statementTr; sym_gotoTr;
   sym_labeledStatementTr; sym__statementTr]; STATE 13420 [sym_assignment];
   STATE 11684 [sym_varAssignDef]; STATE 13420 [sym_varDef; sym_constDef];
   STATE 1260 [sym_label]; STATE 8128 [sym__expr; sym_exprConditional]; STATE 7533 [sym__ref;
   sym_lambda; sym_inherited; sym_exprDot; sym_exprDeref; sym_exprAs; sym_exprTpl;
   sym_exprSubscript; sym_exprCall]; STATE 8128 [sym_exprBinary; sym_exprUnary];
   STATE 7533 [sym_exprParens; sym_exprBrackets; sym__literal; sym_literalString];
   STATE 6915 [sym__literalString; sym_literalChar]; STATE 7533 [sym_literalNumber];
   STATE 7570 [sym__literalInt; sym__literalFloat]; STATE 6915 [aux_sym_literalString_repeat1];
   ACTIONS 9908 [anon_sym_SEMI]; ACTIONS 927 [anon_sym_LBRACK]; ACTIONS 929 [anon_sym_LPAREN];
   ACTIONS 931 [aux_sym__literalString_token1]; ACTIONS 933 [anon_sym_POUND];
   ACTIONS 935 [aux_sym__literalInt_token1]; ACTIONS 937 [aux_sym__literalInt_token2;
   aux_sym__literalInt_token3]; ACTIONS 935 [aux_sym__literalFloat_token1];
   ACTIONS 939 [sym_kAdd; sym_kSub]; ACTIONS 941 [sym_kAt]; ACTIONS 943 [sym_kTrue; sym_kFalse];
   ACTIONS 10188 [sym_labelNumber]; ACTIONS 3 [sym__space]; ACTIONS 5 [sym_ppDirective];
   ACTIONS 3 [sym_comment]; ACTIONS 943 [sym_ppFragmentExpr];
   ACTIONS 931 [sym__literalStringMultiline]; ACTIONS 10190 [sym_identifier];
   ACTIONS 949 [sym_kSpecialize]; ACTIONS 951 [sym_kAsm]; ACTIONS 953 [sym_kBegin];
   ACTIONS 955 [sym_kCase]; ACTIONS 957 [sym_kConst]; ACTIONS 959 [sym_kFor];
   ACTIONS 961 [sym_kFunction]; ACTIONS 963 [sym_kGoto]; ACTIONS 965 [sym_kIf];
   ACTIONS 967 [sym_kInherited]; ACTIONS 943 [sym_kNil]; ACTIONS 941 [sym_kNot];
   ACTIONS 961 [sym_kProcedure]; ACTIONS 969 [sym_kRaise]; ACTIONS 971 [sym_kRepeat];
   ACTIONS 973 [sym_kString]; ACTIONS 975 [sym_kTry]; ACTIONS 3304 [sym_kUntil];
   ACTIONS 979 [sym_kVar]; ACTIONS 981 [sym_kWhile]; ACTIONS 983 [sym_kWith]].

(** State 1104. *)
Definition ts_parse_table_1104 : parse_row :=
  [STATE 6463 [sym_if]; STATE 6587 [sym_ifElse; sym_while; sym_repeat; sym_for; sym_foreach;
   sym_try; sym_case; sym_block; sym_asm; sym_with; sym_raise; sym_statement; sym_goto;
   sym_labeledStatement; sym__statement]; STATE 15874 [sym_ifTr; sym_ifElseTr; sym_whileTr;
   sym_repeatTr; sym_forTr; sym_foreachTr; sym_tryTr; sym_caseTr]; STATE 15738 [sym_blockTr];
   STATE 15874 [sym_asmTr; sym_withTr; sym_raiseTr; sym_statementTr; sym_gotoTr;
   sym_labeledStatementTr; sym__statementTr]; STATE 14065 [sym_assignment];
   STATE 11905 [sym_varAssignDef]; STATE 14065 [sym_varDef; sym_constDef];
   STATE 1211 [sym_label]; STATE 8094 [sym__expr; sym_exprConditional]; STATE 7363 [sym__ref;
   sym_lambda; sym_inherited; sym_exprDot; sym_exprDeref; sym_exprAs; sym_exprTpl;
   sym_exprSubscript; sym_exprCall]; STATE 8094 [sym_exprBinary; sym_exprUnary];
   STATE 7363 [sym_exprParens; sym_exprBrackets; sym__literal; sym_literalString];
   STATE 6967 [sym__literalString; sym_literalChar]; STATE 7363 [sym_literalNumber];
   STATE 7660 [sym__literalInt; sym__literalFloat]; STATE 6967 [aux_sym_literalString_repeat1];
   ACTIONS 10462 [anon_sym_SEMI]; ACTIONS 9986 [anon_sym_LBRACK]; ACTIONS 9988 [anon_sym_LPAREN];
   ACTIONS 9990 [aux_sym__literalString_token1]; ACTIONS 9992 [anon_sym_POUND];
   ACTIONS 9994 [aux_sym__literalInt_token1]; ACTIONS 9996 [aux_sym__literalInt_token2;
   aux_sym__literalInt_token3]; ACTIONS 9994 [aux_sym__literalFloat_token1];
   ACTIONS 9998 [sym_kAdd; sym_kSub]; ACTIONS 10000 [sym_kAt]; ACTIONS 10002 [sym_kTrue;
   sym_kFalse]; ACTIONS 10004 [sym_labelNumber]; ACTIONS 3 [sym__space];
   ACTIONS 5 [sym_ppDirective]; ACTIONS 3 [sym_comment]; ACTIONS 10002 [sym_ppFragmentExpr];
   ACTIONS 9990 [sym__literalStringMultiline]; ACTIONS 10006 [sym_identifier];
   ACTIONS 10008 [sym_kSpecialize]; ACTIONS 10068 [sym_kAsm]; ACTIONS 10070 [sym_kBegin];
   ACTIONS 10072 [sym_kCase]; ACTIONS 10016 [sym_kConst]; ACTIONS 3272 [sym_kElse];
   ACTIONS 10074 [sym_kFor]; ACTIONS 10020 [sym_kFunction]; ACTIONS 10076 [sym_kGoto];
   ACTIONS 10078 [sym_kIf]; ACTIONS 10026 [sym_kInherited]; ACTIONS 10002 [sym_kNil];
   ACTIONS 10000 [sym_kNot]; ACTIONS 10020 [sym_kProcedure]; ACTIONS 10080 [sym_kRaise];
   ACTIONS 10082 [sym_kRepeat]; ACTIONS 10032 [sym_kString]; ACTIONS 10084 [sym_kTry];
   ACTIONS 10036 [sym_kVar]; ACTIONS 10086 [sym_kWhile]; ACTIONS 10088 [sym_kWith]].

(** State 1105. *)
Definition ts_parse_table_1105 : parse_row :=
  [STATE 5864 [sym_if]; STATE 5819 [sym_ifElse; sym_while; sym_repeat; sym_for; sym_foreach;
   sym_try; sym_case; sym_block; sym_asm; sym_with; sym_raise; sym_statement; sym_goto;
   sym_labeledStatement; sym__statement]; STATE 15874 [sym_ifTr; sym_ifElseTr; sym_whileTr;
   sym_repeatTr; sym_forTr; sym_foreachTr; sym_tryTr; sym_caseTr]; STATE 15738 [sym_blockTr];
   STATE 15874 [sym_asmTr; sym_withTr; sym_raiseTr; sym_statementTr; sym_gotoTr;
   sym_labeledStatementTr; sym__statementTr]; STATE 13343 [sym_assignment];
   STATE 11905 [sym_varAssignDef]; STATE 13343 [sym_varDef; sym_constDef];
   STATE 1279 [sym_label]; STATE 7969 [sym__expr; sym_exprConditional]; STATE 7363 [sym__ref;
   sym_lambda; sym_inherited; sym_exprDot; sym_exprDeref; sym_exprAs; sym_exprTpl;
   sym_exprSubscript; sym_exprCall]; STATE 7969 [sym_exprBinary; sym_exprUnary];
   STATE 7363 [sym_exprParens; sym_exprBrackets; sym__literal; sym_literalString];
   STATE 6967 [sym__literalString; sym_literalChar]; STATE 7363 [sym_literalNumber];
   STATE 7660 [sym__literalInt; sym__literalFloat]; STATE 6967 [aux_sym_literalString_repeat1];
   ACTIONS 10464 [anon_sym_SEMI]; ACTIONS 9986 [anon_sym_LBRACK]; ACTIONS 9988 [anon_sym_LPAREN];
   ACTIONS 9990 [aux_sym__literalString_token1]; ACTIONS 9992 [anon_sym_POUND];
   ACTIONS 9994 [aux_sym__literalInt_token1]; ACTIONS 9996 [aux_sym__literalInt_token2;
   aux_sym__literalInt_token3]; ACTIONS 9994 [aux_sym__literalFloat_token1];
   ACTIONS 9998 [sym_kAdd; sym_kSub]; ACTIONS 10000 [sym_kAt]; ACTIONS 10002 [sym_kTrue;
   sym_kFalse]; ACTIONS 10004 [sym_labelNumber]; ACTIONS 3 [sym__space];
   ACTIONS 5 [sym_ppDirective]; ACTIONS 3 [sym_comment]; ACTIONS 10002 [sym_ppFragmentExpr];
   ACTIONS 9990 [sym__literalStringMultiline]; ACTIONS 10006 [sym_identifier];
   ACTIONS 10008 [sym_kSpecialize]; ACTIONS 10466 [sym_kAsm]; ACTIONS 10468 [sym_kBegin];
   ACTIONS 10470 [sym_kCase]; ACTIONS 10016 [sym_kConst]; ACTIONS 3272 [sym_kElse];
   ACTIONS 10472 [sym_kFor]; ACTIONS 10020 [sym_kFunction]; ACTIONS 10474 [sym_kGoto];
   ACTIONS 10476 [sym_kIf]; ACTIONS 10026 [sym_kInherited]; ACTIONS 10002 [sym_kNil];
   ACTIONS 10000 [sym_kNot]; ACTIONS 10020 [sym_kProcedure]; ACTIONS 10478 [sym_kRaise];
   ACTIONS 10480 [sym_kRepeat]; ACTIONS 10032 [sym_kString]; ACTIONS 10482 [sym_kTry];
   ACTIONS 10036 [sym_kVar]; ACTIONS 10484 [sym_kWhile]; ACTIONS 10486 [sym_kWith]].

(** State 1106. *)
Definition ts_parse_table_1106 : parse_row :=
  [STATE 13563 [sym_if]; STATE 13634 [sym_ifElse; sym_while; sym_repeat; sym_for; sym_foreach;
   sym_try; sym_case; sym_block; sym_asm; sym_with; sym_raise; sym_statement; sym_goto;
   sym_labeledStatement; sym__statement]; STATE 15078 [sym_ifTr; sym_ifElseTr; sym_whileTr;
   sym_repeatTr; sym_forTr; sym_foreachTr; sym_tryTr; sym_caseTr]; STATE 15738 [sym_blockTr];
   STATE 15078 [sym_asmTr; sym_withTr; sym_raiseTr; sym_statementTr; sym_gotoTr;
   sym_labeledStatementTr; sym__statementTr]; STATE 13914 [sym_assignment];
   STATE 11905 [sym_varAssignDef]; STATE 13914 [sym_varDef; sym_constDef];
   STATE 1253 [sym_label]; STATE 8008 [sym__expr; sym_exprConditional]; STATE 7363 [sym__ref;
   sym_lambda; sym_inherited; sym_exprDot; sym_exprDeref; sym_exprAs; sym_exprTpl;
   sym_exprSubscript; sym_exprCall]; STATE 8008 [sym_exprBinary; sym_exprUnary];
   STATE 7363 [sym_exprParens; sym_exprBrackets; sym__literal; sym_literalString];
   STATE 6967 [sym__literalString; sym_literalChar]; STATE 7363 [sym_literalNumber];
   STATE 7660 [sym__literalInt; sym__literalFloat]; STATE 6967 [aux_sym_literalString_repeat1];
   ACTIONS 10488 [anon_sym_SEMI]; ACTIONS 9986 [anon_sym_LBRACK]; ACTIONS 9988 [anon_sym_LPAREN];
   ACTIONS 9990 [aux_sym__literalString_token1]; ACTIONS 9992 [anon_sym_POUND];
   ACTIONS 9994 [aux_sym__literalInt_token1]; ACTIONS 9996 [aux_sym__literalInt_token2;
   aux_sym__literalInt_token3]; ACTIONS 9994 [aux_sym__literalFloat_token1];
   ACTIONS 9998 [sym_kAdd; sym_kSub]; ACTIONS 10000 [sym_kAt]; ACTIONS 10002 [sym_kTrue;
   sym_kFalse]; ACTIONS 10004 [sym_labelNumber]; ACTIONS 3 [sym__space];
   ACTIONS 5 [sym_ppDirective]; ACTIONS 3 [sym_comment]; ACTIONS 10002 [sym_ppFragmentExpr];
   ACTIONS 9990 [sym__literalStringMultiline]; ACTIONS 10006 [sym_identifier];
   ACTIONS 10008 [sym_kSpecialize]; ACTIONS 10374 [sym_kAsm]; ACTIONS 10376 [sym_kBegin];
   ACTIONS 10378 [sym_kCase]; ACTIONS 10016 [sym_kConst]; ACTIONS 10490 [sym_kElse];
   ACTIONS 10380 [sym_kFor]; ACTIONS 10020 [sym_kFunction]; ACTIONS 10382 [sym_kGoto];
   ACTIONS 10384 [sym_kIf]; ACTIONS 10026 [sym_kInherited]; ACTIONS 10002 [sym_kNil];
   ACTIONS 10000 [sym_kNot]; ACTIONS 10020 [sym_kProcedure]; ACTIONS 10386 [sym_kRaise];
   ACTIONS 10388 [sym_kRepeat]; ACTIONS 10032 [sym_kString]; ACTIONS 10390 [sym_kTry];
   ACTIONS 10036 [sym_kVar]; ACTIONS 10392 [sym_kWhile]; ACTIONS 10394 [sym_kWith]].

(** State 1107. *)
Definition ts_parse_table_1107 : parse_row :=
  [STATE 5848 [sym_if]; STATE 5947 [sym_ifElse; sym_while; sym_repeat; sym_for; sym_foreach;
   sym_try; sym_case; sym_block; sym_asm; sym_with; sym_raise; sym_statement; sym_goto;
   sym_labeledStatement; sym__statement]; STATE 15633 [sym_ifTr; sym_ifElseTr; sym_whileTr;
   sym_repeatTr; sym_forTr; sym_foreachTr; sym_tryTr; sym_caseTr]; STATE 15738 [sym_blockTr];
   STATE 15633 [sym_asmTr; sym_withTr; sym_raiseTr; sym_statementTr; sym_gotoTr;
   sym_labeledStatementTr; sym__statementTr]; STATE 13130 [sym_assignment];
   STATE 11905 [sym_varAssignDef]; STATE 13130 [sym_varDef; sym_constDef];
   STATE 1274 [sym_label]; STATE 8061 [sym__expr; sym_exprConditional]; STATE 7363 [sym__ref;
   sym_lambda; sym_inherited; sym_exprDot; sym_exprDeref; sym_exprAs; sym_exprTpl;
   sym_exprSubscript; sym_exprCall]; STATE 8061 [sym_exprBinary; sym_exprUnary];
   STATE 7363 [sym_exprParens; sym_exprBrackets; sym__literal; sym_literalString];
   STATE 6967 [sym__literalString; sym_literalChar]; STATE 7363 [sym_literalNumber];
   STATE 7660 [sym__literalInt; sym__literalFloat]; STATE 6967 [aux_sym_literalString_repeat1];
   ACTIONS 10492 [anon_sym_SEMI]; ACTIONS 9986 [anon_sym_LBRACK]; ACTIONS 9988 [anon_sym_LPAREN];
   ACTIONS 9990 [aux_sym__literalString_token1]; ACTIONS 9992 [anon_sym_POUND];
   ACTIONS 9994 [aux_sym__literalInt_token1]; ACTIONS 9996 [aux_sym__literalInt_token2;
   aux_sym__literalInt_token3]; ACTIONS 9994 [aux_sym__literalFloat_token1];
   ACTIONS 9998 [sym_kAdd; sym_kSub]; ACTIONS 10000 [sym_kAt]; ACTIONS 10002 [sym_kTrue;
   sym_kFalse]; ACTIONS 10004 [sym_labelNumber]; ACTIONS 3 [sym__space];
   ACTIONS 5 [sym_ppDirective]; ACTIONS 3 [sym_comment]; ACTIONS 10002 [sym_ppFragmentExpr];
   ACTIONS 9990 [sym__literalStringMultiline]; ACTIONS 10006 [sym_identifier];
   ACTIONS 10008 [sym_kSpecialize]; ACTIONS 10494 [sym_kAsm]; ACTIONS 10496 [sym_kBegin];
   ACTIONS 10498 [sym_kCase]; ACTIONS 10016 [sym_kConst]; ACTIONS 10500 [sym_kElse];
   ACTIONS 10502 [sym_kFor]; ACTIONS 10020 [sym_kFunction]; ACTIONS 10504 [sym_kGoto];
   ACTIONS 10506 [sym_kIf]; ACTIONS 10026 [sym_kInherited]; ACTIONS 10002 [sym_kNil];
   ACTIONS 10000 [sym_kNot]; ACTIONS 10020 [sym_kProcedure]; ACTIONS 10508 [sym_kRaise];
   ACTIONS 10510 [sym_kRepeat]; ACTIONS 10032 [sym_kString]; ACTIONS 10512 [sym_kTry];
   ACTIONS 10036 [sym_kVar]; ACTIONS 10514 [sym_kWhile]; ACTIONS 10516 [sym_kWith]].

(** State 1108. *)
Definition ts_parse_table_1108 : parse_row :=
  [STATE 13305 [sym_if]; STATE 14064 [sym_ifElse; sym_while; sym_repeat; sym_for; sym_foreach;
   sym_try; sym_case; sym_block; sym_asm; sym_with; sym_raise; sym_statement; sym_goto;
   sym_labeledStatement; sym__statement]; STATE 15913 [sym_ifTr; sym_ifElseTr; sym_whileTr;
   sym_repeatTr; sym_forTr; sym_foreachTr; sym_tryTr; sym_caseTr]; STATE 15738 [sym_blockTr];
   STATE 15913 [sym_asmTr; sym_withTr; sym_raiseTr; sym_statementTr; sym_gotoTr;
   sym_labeledStatementTr; sym__statementTr]; STATE 13502 [sym_assignment];
   STATE 11905 [sym_varAssignDef]; STATE 13502 [sym_varDef; sym_constDef];
   STATE 1228 [sym_label]; STATE 8000 [sym__expr; sym_exprConditional]; STATE 7363 [sym__ref;
   sym_lambda; sym_inherited; sym_exprDot; sym_exprDeref; sym_exprAs; sym_exprTpl;
   sym_exprSubscript; sym_exprCall]; STATE 8000 [sym_exprBinary; sym_exprUnary];
   STATE 7363 [sym_exprParens; sym_exprBrackets; sym__literal; sym_literalString];
   STATE 6967 [sym__literalString; sym_literalChar]; STATE 7363 [sym_literalNumber];
   STATE 7660 [sym__literalInt; sym__literalFloat]; STATE 6967 [aux_sym_literalString_repeat1];
   ACTIONS 10160 [anon_sym_SEMI]; ACTIONS 9986 [anon_sym_LBRACK]; ACTIONS 9988 [anon_sym_LPAREN];
   ACTIONS 9990 [aux_sym__literalString_token1]; ACTIONS 9992 [anon_sym_POUND];
   ACTIONS 9994 [aux_sym__literalInt_token1]; ACTIONS 9996 [aux_sym__literalInt_token2;
   aux_sym__literalInt_token3]; ACTIONS 9994 [aux_sym__literalFloat_token1];
   ACTIONS 9998 [sym_kAdd; sym_kSub]; ACTIONS 10000 [sym_kAt]; ACTIONS 10002 [sym_kTrue;
   sym_kFalse]; ACTIONS 10004 [sym_labelNumber]; ACTIONS 3 [sym__space];
   ACTIONS 5 [sym_ppDirective]; ACTIONS 3 [sym_comment]; ACTIONS 10002 [sym_ppFragmentExpr];
   ACTIONS 9990 [sym__literalStringMultiline]; ACTIONS 10006 [sym_identifier];
   ACTIONS 10008 [sym_kSpecialize]; ACTIONS 10162 [sym_kAsm]; ACTIONS 10164 [sym_kBegin];
   ACTIONS 10166 [sym_kCase]; ACTIONS 10016 [sym_kConst]; ACTIONS 10518 [sym_kElse];
   ACTIONS 10170 [sym_kFor]; ACTIONS 10020 [sym_kFunction]; ACTIONS 10172 [sym_kGoto];
   ACTIONS 10174 [sym_kIf]; ACTIONS 10026 [sym_kInherited]; ACTIONS 10002 [sym_kNil];
   ACTIONS 10000 [sym_kNot]; ACTIONS 10020 [sym_kProcedure]; ACTIONS 10176 [sym_kRaise];
   ACTIONS 10178 [sym_kRepeat]; ACTIONS 10032 [sym_kString]; ACTIONS 10180 [sym_kTry];
   ACTIONS 10036 [sym_kVar]; ACTIONS 10182 [sym_kWhile]; ACTIONS 10184 [sym_kWith]].

Definition ts_parse_table_part6 : list parse_row :=
  [
   ts_parse_table_908; ts_parse_table_909; ts_parse_table_910; ts_parse_table_911;
   ts_parse_table_912; ts_parse_table_913; ts_parse_table_914; ts_parse_table_915;
   ts_parse_table_916; ts_parse_table_917; ts_parse_table_918; ts_parse_table_919;
   ts_parse_table_920; ts_parse_table_921; ts_parse_table_922; ts_parse_table_923;
   ts_parse_table_924; ts_parse_table_925; ts_parse_table_926; ts_parse_table_927;
   ts_parse_table_928; ts_parse_table_929; ts_parse_table_930; ts_parse_table_931;
   ts_parse_table_932; ts_parse_table_933; ts_parse_table_934; ts_parse_table_935;
   ts_parse_table_936; ts_parse_table_937; ts_parse_table_938; ts_parse_table_939;
   ts_parse_table_940; ts_parse_table_941; ts_parse_table_942; ts_parse_table_943;
   ts_parse_table_944; ts_parse_table_945; ts_parse_table_946; ts_parse_table_947;
   ts_parse_table_948; ts_parse_table_949; ts_parse_table_950; ts_parse_table_951;
   ts_parse_table_952; ts_parse_table_953; ts_parse_table_954; ts_parse_table_955;
   ts_parse_table_956; ts_parse_table_957; ts_parse_table_958; ts_parse_table_959;
   ts_parse_table_960; ts_parse_table_961; ts_parse_table_962; ts_parse_table_963;
   ts_parse_table_964; ts_parse_table_965; ts_parse_table_966; ts_parse_table_967;
   ts_parse_table_968; ts_parse_table_969; ts_parse_table_970; ts_parse_table_971;
   ts_parse_table_972; ts_parse_table_973; ts_parse_table_974; ts_parse_table_975;
   ts_parse_table_976; ts_parse_table_977; ts_parse_table_978; ts_parse_table_979;
   ts_parse_table_980; ts_parse_table_981; ts_parse_table_982; ts_parse_table_983;
   ts_parse_table_984; ts_parse_table_985; ts_parse_table_986; ts_parse_table_987;
   ts_parse_table_988; ts_parse_table_989; ts_parse_table_990; ts_parse_table_991;
   ts_parse_table_992; ts_parse_table_993; ts_parse_table_994; ts_parse_table_995;
   ts_parse_table_996; ts_parse_table_997; ts_parse_table_998; ts_parse_table_999;
   ts_parse_table_1000; ts_parse_table_1001; ts_parse_table_1002; ts_parse_table_1003;
   ts_parse_table_1004; ts_parse_table_1005; ts_parse_table_1006; ts_parse_table_1007;
   ts_parse_table_1008; ts_parse_table_1009; ts_parse_table_1010; ts_parse_table_1011;
   ts_parse_table_1012; ts_parse_table_1013; ts_parse_table_1014; ts_parse_table_1015;
   ts_parse_table_1016; ts_parse_table_1017; ts_parse_table_1018; ts_parse_table_1019;
   ts_parse_table_1020; ts_parse_table_1021; ts_parse_table_1022; ts_parse_table_1023;
   ts_parse_table_1024; ts_parse_table_1025; ts_parse_table_1026; ts_parse_table_1027;
   ts_parse_table_1028; ts_parse_table_1029; ts_parse_table_1030; ts_parse_table_1031;
   ts_parse_table_1032; ts_parse_table_1033; ts_parse_table_1034; ts_parse_table_1035;
   ts_parse_table_1036; ts_parse_table_1037; ts_parse_table_1038; ts_parse_table_1039;
   ts_parse_table_1040; ts_parse_table_1041; ts_parse_table_1042; ts_parse_table_1043;
   ts_parse_table_1044; ts_parse_table_1045; ts_parse_table_1046; ts_parse_table_1047;
   ts_parse_table_1048; ts_parse_table_1049; ts_parse_table_1050; ts_parse_table_1051;
   ts_parse_table_1052; ts_parse_table_1053; ts_parse_table_1054; ts_parse_table_1055;
   ts_parse_table_1056; ts_parse_table_1057; ts_parse_table_1058; ts_parse_table_1059;
   ts_parse_table_1060; ts_parse_table_1061; ts_parse_table_1062; ts_parse_table_1063;
   ts_parse_table_1064; ts_parse_table_1065; ts_parse_table_1066; ts_parse_table_1067;
   ts_parse_table_1068; ts_parse_table_1069; ts_parse_table_1070; ts_parse_table_1071;
   ts_parse_table_1072; ts_parse_table_1073; ts_parse_table_1074; ts_parse_table_1075;
   ts_parse_table_1076; ts_parse_table_1077; ts_parse_table_1078; ts_parse_table_1079;
   ts_parse_table_1080; ts_parse_table_1081; ts_parse_table_1082; ts_parse_table_1083;
   ts_parse_table_1084; ts_parse_table_1085; ts_parse_table_1086; ts_parse_table_1087;
   ts_parse_table_1088; ts_parse_table_1089; ts_parse_table_1090; ts_parse_table_1091;
   ts_parse_table_1092; ts_parse_table_1093; ts_parse_table_1094; ts_parse_table_1095;
   ts_parse_table_1096; ts_parse_table_1097; ts_parse_table_1098; ts_parse_table_1099;
   ts_parse_table_1100; ts_parse_table_1101; ts_parse_table_1102; ts_parse_table_1103;
   ts_parse_table_1104; ts_parse_table_1105; ts_parse_table_1106; ts_parse_table_1107;
   ts_parse_table_1108
  ].
