(* ===== verification/ParseTable7.v ===== *)
(** * The parse table of [parser.c], states 1109 to 1323

    One definition for each row of [ts_parse_table], with the initializers of
    the row in the order of the source; consecutive initializers of the same
    value are one group. *)

From S2P Require Import Prelude.
From S2P Require Import Symbols.
From S2P Require Import ParseTypes.

(** State 1109. *)
Definition ts_parse_table_1109 : parse_row :=
  [STATE 6273 [sym_if]; STATE 6181 [sym_ifElse; sym_while; sym_repeat; sym_for; sym_foreach;
   sym_try; sym_case; sym_block; sym_asm; sym_with; sym_raise; sym_statement; sym_goto;
   sym__statement]; STATE 13815 [sym_ifTr; sym_ifElseTr; sym_whileTr; sym_repeatTr; sym_forTr;
   sym_foreachTr; sym_tryTr; sym_caseTr]; STATE 13195 [sym_blockTr]; STATE 13815 [sym_asmTr;
   sym_withTr; sym_raiseTr; sym_statementTr; sym_gotoTr; sym__statementTr];
   STATE 12722 [sym_assignment]; STATE 11921 [sym_varAssignDef]; STATE 12722 [sym_varDef;
   sym_constDef]; STATE 1114 [sym_label]; STATE 7889 [sym__expr; sym_exprConditional];
   STATE 7326 [sym__ref; sym_lambda; sym_inherited; sym_exprDot; sym_exprDeref; sym_exprAs;
   sym_exprTpl; sym_exprSubscript; sym_exprCall]; STATE 7889 [sym_exprBinary; sym_exprUnary];
   STATE 7326 [sym_exprParens; sym_exprBrackets; sym__literal; sym_literalString];
   STATE 6591 [sym__literalString; sym_literalChar]; STATE 7326 [sym_literalNumber];
   STATE 7474 [sym__literalInt; sym__literalFloat];
   STATE 1114 [aux_sym_labeledStatement_repeat1]; STATE 6591 [aux_sym_literalString_repeat1];
   ACTIONS 10520 [anon_sym_SEMI]; ACTIONS 9754 [anon_sym_LBRACK]; ACTIONS 9756 [anon_sym_LPAREN];
   ACTIONS 9758 [aux_sym__literalString_token1]; ACTIONS 9760 [anon_sym_POUND];
   ACTIONS 9762 [aux_sym__literalInt_token1]; ACTIONS 9764 [aux_sym__literalInt_token2;
   aux_sym__literalInt_token3]; ACTIONS 9762 [aux_sym__literalFloat_token1];
   ACTIONS 9766 [sym_kAdd; sym_kSub]; ACTIONS 9768 [sym_kAt]; ACTIONS 9770 [sym_kTrue;
   sym_kFalse]; ACTIONS 9772 [sym_labelNumber]; ACTIONS 3 [sym__space];
   ACTIONS 5 [sym_ppDirective]; ACTIONS 3 [sym_comment]; ACTIONS 9770 [sym_ppFragmentExpr];
   ACTIONS 9758 [sym__literalStringMultiline]; ACTIONS 9774 [sym_identifier];
   ACTIONS 9776 [sym_kSpecialize]; ACTIONS 9876 [sym_kAsm]; ACTIONS 9878 [sym_kBegin];
   ACTIONS 9880 [sym_kCase]; ACTIONS 9784 [sym_kConst]; ACTIONS 4301 [sym_kElse];
   ACTIONS 9882 [sym_kFor]; ACTIONS 9788 [sym_kFunction]; ACTIONS 9884 [sym_kGoto];
   ACTIONS 9886 [sym_kIf]; ACTIONS 9794 [sym_kInherited]; ACTIONS 9770 [sym_kNil];
   ACTIONS 9768 [sym_kNot]; ACTIONS 9788 [sym_kProcedure]; ACTIONS 9888 [sym_kRaise];
   ACTIONS 9890 [sym_kRepeat]; ACTIONS 9800 [sym_kString]; ACTIONS 9892 [sym_kTry];
   ACTIONS 4301 [sym_kUntil]; ACTIONS 9804 [sym_kVar]; ACTIONS 9894 [sym_kWhile];
   ACTIONS 9896 [sym_kWith]].

(** State 1110. *)
Definition ts_parse_table_1110 : parse_row :=
  [STATE 5864 [sym_if]; STATE 5821 [sym_ifElse; sym_while; sym_repeat; sym_for; sym_foreach;
   sym_try; sym_case; sym_block; sym_asm; sym_with; sym_raise; sym_statement; sym_goto;
   sym_labeledStatement; sym__statement]; STATE 15916 [sym_ifTr; sym_ifElseTr; sym_whileTr;
   sym_repeatTr; sym_forTr; sym_foreachTr; sym_tryTr; sym_caseTr]; STATE 15738 [sym_blockTr];
   STATE 15916 [sym_asmTr; sym_withTr; sym_raiseTr; sym_statementTr; sym_gotoTr;
   sym_labeledStatementTr; sym__statementTr]; STATE 13343 [sym_assignment];
   STATE 11905 [sym_varAssignDef]; STATE 13343 [sym_varDef; sym_constDef];
   STATE 1279 [sym_label]; STATE 7969 [sym__expr; sym_exprConditional]; STATE 7363 [sym__ref;
   sym_lambda; sym_inherited; sym_exprDot; sym_exprDeref; sym_exprAs; sym_exprTpl;
   sym_exprSubscript; sym_exprCall]; STATE 7969 [sym_exprBinary; sym_exprUnary];
   STATE 7363 [sym_exprParens; sym_exprBrackets; sym__literal; sym_literalString];
   STATE 6967 [sym__literalString; sym_literalChar]; STATE 7363 [sym_literalNumber];
   STATE 7660 [sym__literalInt; sym__literalFloat]; STATE 6967 [aux_sym_literalString_repeat1];
   ACTIONS 10522 [anon_sym_SEMI]; ACTIONS 9986 [anon_sym_LBRACK]; ACTIONS 9988 [anon_sym_LPAREN];
   ACTIONS 9990 [aux_sym__literalString_token1]; ACTIONS 9992 [anon_sym_POUND];
   ACTIONS 9994 [aux_sym__literalInt_token1]; ACTIONS 9996 [aux_sym__literalInt_token2;
   aux_sym__literalInt_token3]; ACTIONS 9994 [aux_sym__literalFloat_token1];
   ACTIONS 9998 [sym_kAdd; sym_kSub]; ACTIONS 10000 [sym_kAt]; ACTIONS 10002 [sym_kTrue;
   sym_kFalse]; ACTIONS 10004 [sym_labelNumber]; ACTIONS 3 [sym__space];
   ACTIONS 5 [sym_ppDirective]; ACTIONS 3 [sym_comment]; ACTIONS 10002 [sym_ppFragmentExpr];
   ACTIONS 9990 [sym__literalStringMultiline]; ACTIONS 10006 [sym_identifier];
   ACTIONS 10008 [sym_kSpecialize]; ACTIONS 10466 [sym_kAsm]; ACTIONS 10468 [sym_kBegin];
   ACTIONS 10470 [sym_kCase]; ACTIONS 10016 [sym_kConst]; ACTIONS 3278 [sym_kElse];
   ACTIONS 10472 [sym_kFor]; ACTIONS 10020 [sym_kFunction]; ACTIONS 10474 [sym_kGoto];
   ACTIONS 10476 [sym_kIf]; ACTIONS 10026 [sym_kInherited]; ACTIONS 10002 [sym_kNil];
   ACTIONS 10000 [sym_kNot]; ACTIONS 10020 [sym_kProcedure]; ACTIONS 10478 [sym_kRaise];
   ACTIONS 10480 [sym_kRepeat]; ACTIONS 10032 [sym_kString]; ACTIONS 10482 [sym_kTry];
   ACTIONS 10036 [sym_kVar]; ACTIONS 10484 [sym_kWhile]; ACTIONS 10486 [sym_kWith]].

(** State 1111. *)
Definition ts_parse_table_1111 : parse_row :=
  [STATE 5864 [sym_if]; STATE 5830 [sym_ifElse; sym_while; sym_repeat; sym_for; sym_foreach;
   sym_try; sym_case; sym_block; sym_asm; sym_with; sym_raise; sym_statement; sym_goto;
   sym_labeledStatement; sym__statement]; STATE 15171 [sym_ifTr; sym_ifElseTr; sym_whileTr;
   sym_repeatTr; sym_forTr; sym_foreachTr; sym_tryTr; sym_caseTr]; STATE 15738 [sym_blockTr];
   STATE 15171 [sym_asmTr; sym_withTr; sym_raiseTr; sym_statementTr; sym_gotoTr;
   sym_labeledStatementTr; sym__statementTr]; STATE 13343 [sym_assignment];
   STATE 11905 [sym_varAssignDef]; STATE 13343 [sym_varDef; sym_constDef];
   STATE 1279 [sym_label]; STATE 7969 [sym__expr; sym_exprConditional]; STATE 7363 [sym__ref;
   sym_lambda; sym_inherited; sym_exprDot; sym_exprDeref; sym_exprAs; sym_exprTpl;
   sym_exprSubscript; sym_exprCall]; STATE 7969 [sym_exprBinary; sym_exprUnary];
   STATE 7363 [sym_exprParens; sym_exprBrackets; sym__literal; sym_literalString];
   STATE 6967 [sym__literalString; sym_literalChar]; STATE 7363 [sym_literalNumber];
   STATE 7660 [sym__literalInt; sym__literalFloat]; STATE 6967 [aux_sym_literalString_repeat1];
   ACTIONS 10524 [anon_sym_SEMI]; ACTIONS 9986 [anon_sym_LBRACK]; ACTIONS 9988 [anon_sym_LPAREN];
   ACTIONS 9990 [aux_sym__literalString_token1]; ACTIONS 9992 [anon_sym_POUND];
   ACTIONS 9994 [aux_sym__literalInt_token1]; ACTIONS 9996 [aux_sym__literalInt_token2;
   aux_sym__literalInt_token3]; ACTIONS 9994 [aux_sym__literalFloat_token1];
   ACTIONS 9998 [sym_kAdd; sym_kSub]; ACTIONS 10000 [sym_kAt]; ACTIONS 10002 [sym_kTrue;
   sym_kFalse]; ACTIONS 10004 [sym_labelNumber]; ACTIONS 3 [sym__space];
   ACTIONS 5 [sym_ppDirective]; ACTIONS 3 [sym_comment]; ACTIONS 10002 [sym_ppFragmentExpr];
   ACTIONS 9990 [sym__literalStringMultiline]; ACTIONS 10006 [sym_identifier];
   ACTIONS 10008 [sym_kSpecialize]; ACTIONS 10466 [sym_kAsm]; ACTIONS 10468 [sym_kBegin];
   ACTIONS 10470 [sym_kCase]; ACTIONS 10016 [sym_kConst]; ACTIONS 3282 [sym_kElse];
   ACTIONS 10472 [sym_kFor]; ACTIONS 10020 [sym_kFunction]; ACTIONS 10474 [sym_kGoto];
   ACTIONS 10476 [sym_kIf]; ACTIONS 10026 [sym_kInherited]; ACTIONS 10002 [sym_kNil];
   ACTIONS 10000 [sym_kNot]; ACTIONS 10020 [sym_kProcedure]; ACTIONS 10478 [sym_kRaise];
   ACTIONS 10480 [sym_kRepeat]; ACTIONS 10032 [sym_kString]; ACTIONS 10482 [sym_kTry];
   ACTIONS 10036 [sym_kVar]; ACTIONS 10484 [sym_kWhile]; ACTIONS 10486 [sym_kWith]].

(** State 1112. *)
Definition ts_parse_table_1112 : parse_row :=
  [STATE 5864 [sym_if]; STATE 5844 [sym_ifElse; sym_while; sym_repeat; sym_for; sym_foreach;
   sym_try; sym_case; sym_block; sym_asm; sym_with; sym_raise; sym_statement; sym_goto];
   STATE 5877 [sym_labeledStatement]; STATE 5844 [sym__statement]; STATE 14171 [sym_ifTr;
   sym_ifElseTr; sym_whileTr; sym_repeatTr; sym_forTr; sym_foreachTr; sym_tryTr; sym_caseTr];
   STATE 15738 [sym_blockTr]; STATE 14171 [sym_asmTr; sym_withTr; sym_raiseTr; sym_statementTr;
   sym_gotoTr]; STATE 14168 [sym_labeledStatementTr]; STATE 14171 [sym__statementTr];
   STATE 13343 [sym_assignment]; STATE 11905 [sym_varAssignDef]; STATE 13343 [sym_varDef;
   sym_constDef]; STATE 1279 [sym_label]; STATE 7969 [sym__expr; sym_exprConditional];
   STATE 7363 [sym__ref; sym_lambda; sym_inherited; sym_exprDot; sym_exprDeref; sym_exprAs;
   sym_exprTpl; sym_exprSubscript; sym_exprCall]; STATE 7969 [sym_exprBinary; sym_exprUnary];
   STATE 7363 [sym_exprParens; sym_exprBrackets; sym__literal; sym_literalString];
   STATE 6967 [sym__literalString; sym_literalChar]; STATE 7363 [sym_literalNumber];
   STATE 7660 [sym__literalInt; sym__literalFloat]; STATE 6967 [aux_sym_literalString_repeat1];
   ACTIONS 10526 [anon_sym_SEMI]; ACTIONS 9986 [anon_sym_LBRACK]; ACTIONS 9988 [anon_sym_LPAREN];
   ACTIONS 9990 [aux_sym__literalString_token1]; ACTIONS 9992 [anon_sym_POUND];
   ACTIONS 9994 [aux_sym__literalInt_token1]; ACTIONS 9996 [aux_sym__literalInt_token2;
   aux_sym__literalInt_token3]; ACTIONS 9994 [aux_sym__literalFloat_token1];
   ACTIONS 9998 [sym_kAdd; sym_kSub]; ACTIONS 10000 [sym_kAt]; ACTIONS 10002 [sym_kTrue;
   sym_kFalse]; ACTIONS 10004 [sym_labelNumber]; ACTIONS 3 [sym__space];
   ACTIONS 5 [sym_ppDirective]; ACTIONS 3 [sym_comment]; ACTIONS 10002 [sym_ppFragmentExpr];
   ACTIONS 9990 [sym__literalStringMultiline]; ACTIONS 10006 [sym_identifier];
   ACTIONS 10008 [sym_kSpecialize]; ACTIONS 10466 [sym_kAsm]; ACTIONS 10468 [sym_kBegin];
   ACTIONS 10470 [sym_kCase]; ACTIONS 10016 [sym_kConst]; ACTIONS 3286 [sym_kElse];
   ACTIONS 10472 [sym_kFor]; ACTIONS 10020 [sym_kFunction]; ACTIONS 10474 [sym_kGoto];
   ACTIONS 10476 [sym_kIf]; ACTIONS 10026 [sym_kInherited]; ACTIONS 10002 [sym_kNil];
   ACTIONS 10000 [sym_kNot]; ACTIONS 10020 [sym_kProcedure]; ACTIONS 10478 [sym_kRaise];
   ACTIONS 10480 [sym_kRepeat]; ACTIONS 10032 [sym_kString]; ACTIONS 10482 [sym_kTry];
   ACTIONS 10036 [sym_kVar]; ACTIONS 10484 [sym_kWhile]; ACTIONS 10486 [sym_kWith]].

(** State 1113. *)
Definition ts_parse_table_1113 : parse_row :=
  [STATE 5864 [sym_if]; STATE 5847 [sym_ifElse; sym_while; sym_repeat; sym_for; sym_foreach;
   sym_try; sym_case; sym_block; sym_asm; sym_with; sym_raise; sym_statement; sym_goto;
   sym_labeledStatement; sym__statement]; STATE 15904 [sym_ifTr; sym_ifElseTr; sym_whileTr;
   sym_repeatTr; sym_forTr; sym_foreachTr; sym_tryTr; sym_caseTr]; STATE 15738 [sym_blockTr];
   STATE 15904 [sym_asmTr; sym_withTr; sym_raiseTr; sym_statementTr; sym_gotoTr;
   sym_labeledStatementTr; sym__statementTr]; STATE 13343 [sym_assignment];
   STATE 11905 [sym_varAssignDef]; STATE 13343 [sym_varDef; sym_constDef];
   STATE 1279 [sym_label]; STATE 7969 [sym__expr; sym_exprConditional]; STATE 7363 [sym__ref;
   sym_lambda; sym_inherited; sym_exprDot; sym_exprDeref; sym_exprAs; sym_exprTpl;
   sym_exprSubscript; sym_exprCall]; STATE 7969 [sym_exprBinary; sym_exprUnary];
   STATE 7363 [sym_exprParens; sym_exprBrackets; sym__literal; sym_literalString];
   STATE 6967 [sym__literalString; sym_literalChar]; STATE 7363 [sym_literalNumber];
   STATE 7660 [sym__literalInt; sym__literalFloat]; STATE 6967 [aux_sym_literalString_repeat1];
   ACTIONS 10528 [anon_sym_SEMI]; ACTIONS 9986 [anon_sym_LBRACK]; ACTIONS 9988 [anon_sym_LPAREN];
   ACTIONS 9990 [aux_sym__literalString_token1]; ACTIONS 9992 [anon_sym_POUND];
   ACTIONS 9994 [aux_sym__literalInt_token1]; ACTIONS 9996 [aux_sym__literalInt_token2;
   aux_sym__literalInt_token3]; ACTIONS 9994 [aux_sym__literalFloat_token1];
   ACTIONS 9998 [sym_kAdd; sym_kSub]; ACTIONS 10000 [sym_kAt]; ACTIONS 10002 [sym_kTrue;
   sym_kFalse]; ACTIONS 10004 [sym_labelNumber]; ACTIONS 3 [sym__space];
   ACTIONS 5 [sym_ppDirective]; ACTIONS 3 [sym_comment]; ACTIONS 10002 [sym_ppFragmentExpr];
   ACTIONS 9990 [sym__literalStringMultiline]; ACTIONS 10006 [sym_identifier];
   ACTIONS 10008 [sym_kSpecialize]; ACTIONS 10466 [sym_kAsm]; ACTIONS 10468 [sym_kBegin];
   ACTIONS 10470 [sym_kCase]; ACTIONS 10016 [sym_kConst]; ACTIONS 3290 [sym_kElse];
   ACTIONS 10472 [sym_kFor]; ACTIONS 10020 [sym_kFunction]; ACTIONS 10474 [sym_kGoto];
   ACTIONS 10476 [sym_kIf]; ACTIONS 10026 [sym_kInherited]; ACTIONS 10002 [sym_kNil];
   ACTIONS 10000 [sym_kNot]; ACTIONS 10020 [sym_kProcedure]; ACTIONS 10478 [sym_kRaise];
   ACTIONS 10480 [sym_kRepeat]; ACTIONS 10032 [sym_kString]; ACTIONS 10482 [sym_kTry];
   ACTIONS 10036 [sym_kVar]; ACTIONS 10484 [sym_kWhile]; ACTIONS 10486 [sym_kWith]].

(** State 1114. *)
Definition ts_parse_table_1114 : parse_row :=
  [STATE 6273 [sym_if]; STATE 6250 [sym_ifElse; sym_while; sym_repeat; sym_for; sym_foreach;
   sym_try; sym_case; sym_block; sym_asm; sym_with; sym_raise; sym_statement; sym_goto;
   sym__statement]; STATE 13255 [sym_ifTr; sym_ifElseTr; sym_whileTr; sym_repeatTr; sym_forTr;
   sym_foreachTr; sym_tryTr; sym_caseTr]; STATE 13195 [sym_blockTr]; STATE 13255 [sym_asmTr;
   sym_withTr; sym_raiseTr; sym_statementTr; sym_gotoTr; sym__statementTr];
   STATE 12722 [sym_assignment]; STATE 11921 [sym_varAssignDef]; STATE 12722 [sym_varDef;
   sym_constDef]; STATE 6127 [sym_label]; STATE 7889 [sym__expr; sym_exprConditional];
   STATE 7326 [sym__ref; sym_lambda; sym_inherited; sym_exprDot; sym_exprDeref; sym_exprAs;
   sym_exprTpl; sym_exprSubscript; sym_exprCall]; STATE 7889 [sym_exprBinary; sym_exprUnary];
   STATE 7326 [sym_exprParens; sym_exprBrackets; sym__literal; sym_literalString];
   STATE 6591 [sym__literalString; sym_literalChar]; STATE 7326 [sym_literalNumber];
   STATE 7474 [sym__literalInt; sym__literalFloat];
   STATE 6127 [aux_sym_labeledStatement_repeat1]; STATE 6591 [aux_sym_literalString_repeat1];
   ACTIONS 10530 [anon_sym_SEMI]; ACTIONS 9754 [anon_sym_LBRACK]; ACTIONS 9756 [anon_sym_LPAREN];
   ACTIONS 9758 [aux_sym__literalString_token1]; ACTIONS 9760 [anon_sym_POUND];
   ACTIONS 9762 [aux_sym__literalInt_token1]; ACTIONS 9764 [aux_sym__literalInt_token2;
   aux_sym__literalInt_token3]; ACTIONS 9762 [aux_sym__literalFloat_token1];
   ACTIONS 9766 [sym_kAdd; sym_kSub]; ACTIONS 9768 [sym_kAt]; ACTIONS 9770 [sym_kTrue;
   sym_kFalse]; ACTIONS 9772 [sym_labelNumber]; ACTIONS 3 [sym__space];
   ACTIONS 5 [sym_ppDirective]; ACTIONS 3 [sym_comment]; ACTIONS 9770 [sym_ppFragmentExpr];
   ACTIONS 9758 [sym__literalStringMultiline]; ACTIONS 9774 [sym_identifier];
   ACTIONS 9776 [sym_kSpecialize]; ACTIONS 9876 [sym_kAsm]; ACTIONS 9878 [sym_kBegin];
   ACTIONS 9880 [sym_kCase]; ACTIONS 9784 [sym_kConst]; ACTIONS 4439 [sym_kElse];
   ACTIONS 9882 [sym_kFor]; ACTIONS 9788 [sym_kFunction]; ACTIONS 9884 [sym_kGoto];
   ACTIONS 9886 [sym_kIf]; ACTIONS 9794 [sym_kInherited]; ACTIONS 9770 [sym_kNil];
   ACTIONS 9768 [sym_kNot]; ACTIONS 9788 [sym_kProcedure]; ACTIONS 9888 [sym_kRaise];
   ACTIONS 9890 [sym_kRepeat]; ACTIONS 9800 [sym_kString]; ACTIONS 9892 [sym_kTry];
   ACTIONS 4439 [sym_kUntil]; ACTIONS 9804 [sym_kVar]; ACTIONS 9894 [sym_kWhile];
   ACTIONS 9896 [sym_kWith]].

(** State 1115. *)
Definition ts_parse_table_1115 : parse_row :=
  [STATE 13563 [sym_if]; STATE 15564 [sym_ifElse; sym_while; sym_repeat; sym_for; sym_foreach;
   sym_try; sym_case; sym_block; sym_asm; sym_with; sym_raise; sym_statement; sym_goto;
   sym_labeledStatement; sym__statement]; STATE 15078 [sym_ifTr; sym_ifElseTr; sym_whileTr;
   sym_repeatTr; sym_forTr; sym_foreachTr; sym_tryTr; sym_caseTr]; STATE 15738 [sym_blockTr];
   STATE 15078 [sym_asmTr; sym_withTr; sym_raiseTr; sym_statementTr; sym_gotoTr;
   sym_labeledStatementTr; sym__statementTr]; STATE 13492 [sym_assignment];
   STATE 11905 [sym_varAssignDef]; STATE 13492 [sym_varDef; sym_constDef];
   STATE 1282 [sym_label]; STATE 7998 [sym__expr; sym_exprConditional]; STATE 7363 [sym__ref;
   sym_lambda; sym_inherited; sym_exprDot; sym_exprDeref; sym_exprAs; sym_exprTpl;
   sym_exprSubscript; sym_exprCall]; STATE 7998 [sym_exprBinary; sym_exprUnary];
   STATE 7363 [sym_exprParens; sym_exprBrackets; sym__literal; sym_literalString];
   STATE 6967 [sym__literalString; sym_literalChar]; STATE 7363 [sym_literalNumber];
   STATE 7660 [sym__literalInt; sym__literalFloat]; STATE 6967 [aux_sym_literalString_repeat1];
   ACTIONS 10106 [anon_sym_SEMI]; ACTIONS 9986 [anon_sym_LBRACK]; ACTIONS 9988 [anon_sym_LPAREN];
   ACTIONS 9990 [aux_sym__literalString_token1]; ACTIONS 9992 [anon_sym_POUND];
   ACTIONS 9994 [aux_sym__literalInt_token1]; ACTIONS 9996 [aux_sym__literalInt_token2;
   aux_sym__literalInt_token3]; ACTIONS 9994 [aux_sym__literalFloat_token1];
   ACTIONS 9998 [sym_kAdd; sym_kSub]; ACTIONS 10000 [sym_kAt]; ACTIONS 10002 [sym_kTrue;
   sym_kFalse]; ACTIONS 10004 [sym_labelNumber]; ACTIONS 3 [sym__space];
   ACTIONS 5 [sym_ppDirective]; ACTIONS 3 [sym_comment]; ACTIONS 10002 [sym_ppFragmentExpr];
   ACTIONS 9990 [sym__literalStringMultiline]; ACTIONS 10006 [sym_identifier];
   ACTIONS 10008 [sym_kSpecialize]; ACTIONS 10108 [sym_kAsm]; ACTIONS 10110 [sym_kBegin];
   ACTIONS 10112 [sym_kCase]; ACTIONS 10016 [sym_kConst]; ACTIONS 10490 [sym_kElse];
   ACTIONS 10116 [sym_kFor]; ACTIONS 10020 [sym_kFunction]; ACTIONS 10118 [sym_kGoto];
   ACTIONS 10120 [sym_kIf]; ACTIONS 10026 [sym_kInherited]; ACTIONS 10002 [sym_kNil];
   ACTIONS 10000 [sym_kNot]; ACTIONS 10020 [sym_kProcedure]; ACTIONS 10122 [sym_kRaise];
   ACTIONS 10124 [sym_kRepeat]; ACTIONS 10032 [sym_kString]; ACTIONS 10126 [sym_kTry];
   ACTIONS 10036 [sym_kVar]; ACTIONS 10128 [sym_kWhile]; ACTIONS 10130 [sym_kWith]].

(** State 1116. *)
Definition ts_parse_table_1116 : parse_row :=
  [STATE 5864 [sym_if]; STATE 5849 [sym_ifElse; sym_while; sym_repeat; sym_for; sym_foreach;
   sym_try; sym_case; sym_block; sym_asm; sym_with; sym_raise; sym_statement; sym_goto;
   sym_labeledStatement; sym__statement]; STATE 15932 [sym_ifTr; sym_ifElseTr; sym_whileTr;
   sym_repeatTr; sym_forTr; sym_foreachTr; sym_tryTr; sym_caseTr]; STATE 15738 [sym_blockTr];
   STATE 15932 [sym_asmTr; sym_withTr; sym_raiseTr; sym_statementTr; sym_gotoTr;
   sym_labeledStatementTr; sym__statementTr]; STATE 13343 [sym_assignment];
   STATE 11905 [sym_varAssignDef]; STATE 13343 [sym_varDef; sym_constDef];
   STATE 1279 [sym_label]; STATE 7969 [sym__expr; sym_exprConditional]; STATE 7363 [sym__ref;
   sym_lambda; sym_inherited; sym_exprDot; sym_exprDeref; sym_exprAs; sym_exprTpl;
   sym_exprSubscript; sym_exprCall]; STATE 7969 [sym_exprBinary; sym_exprUnary];
   STATE 7363 [sym_exprParens; sym_exprBrackets; sym__literal; sym_literalString];
   STATE 6967 [sym__literalString; sym_literalChar]; STATE 7363 [sym_literalNumber];
   STATE 7660 [sym__literalInt; sym__literalFloat]; STATE 6967 [aux_sym_literalString_repeat1];
   ACTIONS 10532 [anon_sym_SEMI]; ACTIONS 9986 [anon_sym_LBRACK]; ACTIONS 9988 [anon_sym_LPAREN];
   ACTIONS 9990 [aux_sym__literalString_token1]; ACTIONS 9992 [anon_sym_POUND];
   ACTIONS 9994 [aux_sym__literalInt_token1]; ACTIONS 9996 [aux_sym__literalInt_token2;
   aux_sym__literalInt_token3]; ACTIONS 9994 [aux_sym__literalFloat_token1];
   ACTIONS 9998 [sym_kAdd; sym_kSub]; ACTIONS 10000 [sym_kAt]; ACTIONS 10002 [sym_kTrue;
   sym_kFalse]; ACTIONS 10004 [sym_labelNumber]; ACTIONS 3 [sym__space];
   ACTIONS 5 [sym_ppDirective]; ACTIONS 3 [sym_comment]; ACTIONS 10002 [sym_ppFragmentExpr];
   ACTIONS 9990 [sym__literalStringMultiline]; ACTIONS 10006 [sym_identifier];
   ACTIONS 10008 [sym_kSpecialize]; ACTIONS 10466 [sym_kAsm]; ACTIONS 10468 [sym_kBegin];
   ACTIONS 10470 [sym_kCase]; ACTIONS 10016 [sym_kConst]; ACTIONS 3296 [sym_kElse];
   ACTIONS 10472 [sym_kFor]; ACTIONS 10020 [sym_kFunction]; ACTIONS 10474 [sym_kGoto];
   ACTIONS 10476 [sym_kIf]; ACTIONS 10026 [sym_kInherited]; ACTIONS 10002 [sym_kNil];
   ACTIONS 10000 [sym_kNot]; ACTIONS 10020 [sym_kProcedure]; ACTIONS 10478 [sym_kRaise];
   ACTIONS 10480 [sym_kRepeat]; ACTIONS 10032 [sym_kString]; ACTIONS 10482 [sym_kTry];
   ACTIONS 10036 [sym_kVar]; ACTIONS 10484 [sym_kWhile]; ACTIONS 10486 [sym_kWith]].

(** State 1117. *)
Definition ts_parse_table_1117 : parse_row :=
  [STATE 6609 [sym_if]; STATE 6465 [sym_ifElse; sym_while; sym_repeat; sym_for; sym_foreach;
   sym_try; sym_case; sym_block; sym_asm; sym_with; sym_raise; sym_statement; sym_goto;
   sym_labeledStatement; sym__statement]; STATE 14703 [sym_ifTr; sym_ifElseTr; sym_whileTr;
   sym_repeatTr; sym_forTr; sym_foreachTr; sym_tryTr; sym_caseTr]; STATE 15738 [sym_blockTr];
   STATE 14703 [sym_asmTr; sym_withTr; sym_raiseTr; sym_statementTr; sym_gotoTr;
   sym_labeledStatementTr; sym__statementTr]; STATE 13641 [sym_assignment];
   STATE 11905 [sym_varAssignDef]; STATE 13641 [sym_varDef; sym_constDef];
   STATE 1242 [sym_label]; STATE 8002 [sym__expr; sym_exprConditional]; STATE 7363 [sym__ref;
   sym_lambda; sym_inherited; sym_exprDot; sym_exprDeref; sym_exprAs; sym_exprTpl;
   sym_exprSubscript; sym_exprCall]; STATE 8002 [sym_exprBinary; sym_exprUnary];
   STATE 7363 [sym_exprParens; sym_exprBrackets; sym__literal; sym_literalString];
   STATE 6967 [sym__literalString; sym_literalChar]; STATE 7363 [sym_literalNumber];
   STATE 7660 [sym__literalInt; sym__literalFloat]; STATE 6967 [aux_sym_literalString_repeat1];
   ACTIONS 10362 [anon_sym_SEMI]; ACTIONS 9986 [anon_sym_LBRACK]; ACTIONS 9988 [anon_sym_LPAREN];
   ACTIONS 9990 [aux_sym__literalString_token1]; ACTIONS 9992 [anon_sym_POUND];
   ACTIONS 9994 [aux_sym__literalInt_token1]; ACTIONS 9996 [aux_sym__literalInt_token2;
   aux_sym__literalInt_token3]; ACTIONS 9994 [aux_sym__literalFloat_token1];
   ACTIONS 9998 [sym_kAdd; sym_kSub]; ACTIONS 10000 [sym_kAt]; ACTIONS 10002 [sym_kTrue;
   sym_kFalse]; ACTIONS 10004 [sym_labelNumber]; ACTIONS 3 [sym__space];
   ACTIONS 5 [sym_ppDirective]; ACTIONS 3 [sym_comment]; ACTIONS 10002 [sym_ppFragmentExpr];
   ACTIONS 9990 [sym__literalStringMultiline]; ACTIONS 10006 [sym_identifier];
   ACTIONS 10008 [sym_kSpecialize]; ACTIONS 10308 [sym_kAsm]; ACTIONS 10310 [sym_kBegin];
   ACTIONS 10312 [sym_kCase]; ACTIONS 10016 [sym_kConst]; ACTIONS 10534 [sym_kElse];
   ACTIONS 10314 [sym_kFor]; ACTIONS 10020 [sym_kFunction]; ACTIONS 10316 [sym_kGoto];
   ACTIONS 10318 [sym_kIf]; ACTIONS 10026 [sym_kInherited]; ACTIONS 10002 [sym_kNil];
   ACTIONS 10000 [sym_kNot]; ACTIONS 10020 [sym_kProcedure]; ACTIONS 10320 [sym_kRaise];
   ACTIONS 10322 [sym_kRepeat]; ACTIONS 10032 [sym_kString]; ACTIONS 10324 [sym_kTry];
   ACTIONS 10036 [sym_kVar]; ACTIONS 10326 [sym_kWhile]; ACTIONS 10328 [sym_kWith]].

(** State 1118. *)
Definition ts_parse_table_1118 : parse_row :=
  [STATE 13318 [sym_if]; STATE 13634 [sym_ifElse; sym_while; sym_repeat; sym_for; sym_foreach;
   sym_try; sym_case; sym_block; sym_asm; sym_with; sym_raise; sym_statement; sym_goto;
   sym_labeledStatement; sym__statement]; STATE 15071 [sym_ifTr; sym_ifElseTr; sym_whileTr;
   sym_repeatTr; sym_forTr; sym_foreachTr; sym_tryTr; sym_caseTr]; STATE 15738 [sym_blockTr];
   STATE 15071 [sym_asmTr; sym_withTr; sym_raiseTr; sym_statementTr; sym_gotoTr;
   sym_labeledStatementTr; sym__statementTr]; STATE 13914 [sym_assignment];
   STATE 11905 [sym_varAssignDef]; STATE 13914 [sym_varDef; sym_constDef];
   STATE 1253 [sym_label]; STATE 8008 [sym__expr; sym_exprConditional]; STATE 7363 [sym__ref;
   sym_lambda; sym_inherited; sym_exprDot; sym_exprDeref; sym_exprAs; sym_exprTpl;
   sym_exprSubscript; sym_exprCall]; STATE 8008 [sym_exprBinary; sym_exprUnary];
   STATE 7363 [sym_exprParens; sym_exprBrackets; sym__literal; sym_literalString];
   STATE 6967 [sym__literalString; sym_literalChar]; STATE 7363 [sym_literalNumber];
   STATE 7660 [sym__literalInt; sym__literalFloat]; STATE 6967 [aux_sym_literalString_repeat1];
   ACTIONS 10488 [anon_sym_SEMI]; ACTIONS 9986 [anon_sym_LBRACK]; ACTIONS 9988 [anon_sym_LPAREN];
   ACTIONS 9990 [aux_sym__literalString_token1]; ACTIONS 9992 [anon_sym_POUND];
   ACTIONS 9994 [aux_sym__literalInt_token1]; ACTIONS 9996 [aux_sym__literalInt_token2;
   aux_sym__literalInt_token3]; ACTIONS 9994 [aux_sym__literalFloat_token1];
   ACTIONS 9998 [sym_kAdd; sym_kSub]; ACTIONS 10000 [sym_kAt]; ACTIONS 10002 [sym_kTrue;
   sym_kFalse]; ACTIONS 10004 [sym_labelNumber]; ACTIONS 3 [sym__space];
   ACTIONS 5 [sym_ppDirective]; ACTIONS 3 [sym_comment]; ACTIONS 10002 [sym_ppFragmentExpr];
   ACTIONS 9990 [sym__literalStringMultiline]; ACTIONS 10006 [sym_identifier];
   ACTIONS 10008 [sym_kSpecialize]; ACTIONS 10374 [sym_kAsm]; ACTIONS 10376 [sym_kBegin];
   ACTIONS 10378 [sym_kCase]; ACTIONS 10016 [sym_kConst]; ACTIONS 10536 [sym_kElse];
   ACTIONS 10380 [sym_kFor]; ACTIONS 10020 [sym_kFunction]; ACTIONS 10382 [sym_kGoto];
   ACTIONS 10384 [sym_kIf]; ACTIONS 10026 [sym_kInherited]; ACTIONS 10002 [sym_kNil];
   ACTIONS 10000 [sym_kNot]; ACTIONS 10020 [sym_kProcedure]; ACTIONS 10386 [sym_kRaise];
   ACTIONS 10388 [sym_kRepeat]; ACTIONS 10032 [sym_kString]; ACTIONS 10390 [sym_kTry];
   ACTIONS 10036 [sym_kVar]; ACTIONS 10392 [sym_kWhile]; ACTIONS 10394 [sym_kWith]].

(** State 1119. *)
Definition ts_parse_table_1119 : parse_row :=
  [STATE 1249 [sym_if]; STATE 1273 [sym_ifElse; sym_while; sym_repeat; sym_for; sym_foreach;
   sym_try; sym_case; sym_block; sym_asm; sym_with; sym_raise; sym_statement; sym_goto;
   sym_labeledStatement; sym__statement]; STATE 15889 [sym_ifTr; sym_ifElseTr; sym_whileTr;
   sym_repeatTr; sym_forTr; sym_foreachTr; sym_tryTr; sym_caseTr]; STATE 15738 [sym_blockTr];
   STATE 15889 [sym_asmTr; sym_withTr; sym_raiseTr; sym_statementTr; sym_gotoTr;
   sym_labeledStatementTr; sym__statementTr]; STATE 13593 [sym_assignment];
   STATE 11905 [sym_varAssignDef]; STATE 13593 [sym_varDef; sym_constDef];
   STATE 1216 [sym_label]; STATE 7997 [sym__expr; sym_exprConditional]; STATE 7363 [sym__ref;
   sym_lambda; sym_inherited; sym_exprDot; sym_exprDeref; sym_exprAs; sym_exprTpl;
   sym_exprSubscript; sym_exprCall]; STATE 7997 [sym_exprBinary; sym_exprUnary];
   STATE 7363 [sym_exprParens; sym_exprBrackets; sym__literal; sym_literalString];
   STATE 6967 [sym__literalString; sym_literalChar]; STATE 7363 [sym_literalNumber];
   STATE 7660 [sym__literalInt; sym__literalFloat]; STATE 6967 [aux_sym_literalString_repeat1];
   ACTIONS 10538 [anon_sym_SEMI]; ACTIONS 9986 [anon_sym_LBRACK]; ACTIONS 9988 [anon_sym_LPAREN];
   ACTIONS 9990 [aux_sym__literalString_token1]; ACTIONS 9992 [anon_sym_POUND];
   ACTIONS 9994 [aux_sym__literalInt_token1]; ACTIONS 9996 [aux_sym__literalInt_token2;
   aux_sym__literalInt_token3]; ACTIONS 9994 [aux_sym__literalFloat_token1];
   ACTIONS 9998 [sym_kAdd; sym_kSub]; ACTIONS 10000 [sym_kAt]; ACTIONS 10002 [sym_kTrue;
   sym_kFalse]; ACTIONS 10004 [sym_labelNumber]; ACTIONS 3 [sym__space];
   ACTIONS 5 [sym_ppDirective]; ACTIONS 3 [sym_comment]; ACTIONS 10002 [sym_ppFragmentExpr];
   ACTIONS 9990 [sym__literalStringMultiline]; ACTIONS 10006 [sym_identifier];
   ACTIONS 10008 [sym_kSpecialize]; ACTIONS 10422 [sym_kAsm]; ACTIONS 10424 [sym_kBegin];
   ACTIONS 10426 [sym_kCase]; ACTIONS 10016 [sym_kConst]; ACTIONS 10540 [sym_kElse];
   ACTIONS 10428 [sym_kFor]; ACTIONS 10020 [sym_kFunction]; ACTIONS 10430 [sym_kGoto];
   ACTIONS 10432 [sym_kIf]; ACTIONS 10026 [sym_kInherited]; ACTIONS 10002 [sym_kNil];
   ACTIONS 10000 [sym_kNot]; ACTIONS 10020 [sym_kProcedure]; ACTIONS 10434 [sym_kRaise];
   ACTIONS 10436 [sym_kRepeat]; ACTIONS 10032 [sym_kString]; ACTIONS 10438 [sym_kTry];
   ACTIONS 10036 [sym_kVar]; ACTIONS 10440 [sym_kWhile]; ACTIONS 10442 [sym_kWith]].

(** State 1120. *)
Definition ts_parse_table_1120 : parse_row :=
  [STATE 1310 [sym_if]; STATE 1361 [sym_ifElse; sym_while; sym_repeat; sym_for; sym_foreach;
   sym_try; sym_case; sym_block; sym_asm; sym_with; sym_raise; sym_statement; sym_goto;
   sym_labeledStatement; sym__statement]; STATE 15874 [sym_ifTr; sym_ifElseTr; sym_whileTr;
   sym_repeatTr; sym_forTr; sym_foreachTr; sym_tryTr; sym_caseTr]; STATE 15738 [sym_blockTr];
   STATE 15874 [sym_asmTr; sym_withTr; sym_raiseTr; sym_statementTr; sym_gotoTr;
   sym_labeledStatementTr; sym__statementTr]; STATE 13934 [sym_assignment];
   STATE 11905 [sym_varAssignDef]; STATE 13934 [sym_varDef; sym_constDef];
   STATE 1220 [sym_label]; STATE 8173 [sym__expr; sym_exprConditional]; STATE 7363 [sym__ref;
   sym_lambda; sym_inherited; sym_exprDot; sym_exprDeref; sym_exprAs; sym_exprTpl;
   sym_exprSubscript; sym_exprCall]; STATE 8173 [sym_exprBinary; sym_exprUnary];
   STATE 7363 [sym_exprParens; sym_exprBrackets; sym__literal; sym_literalString];
   STATE 6967 [sym__literalString; sym_literalChar]; STATE 7363 [sym_literalNumber];
   STATE 7660 [sym__literalInt; sym__literalFloat]; STATE 6967 [aux_sym_literalString_repeat1];
   ACTIONS 10542 [anon_sym_SEMI]; ACTIONS 9986 [anon_sym_LBRACK]; ACTIONS 9988 [anon_sym_LPAREN];
   ACTIONS 9990 [aux_sym__literalString_token1]; ACTIONS 9992 [anon_sym_POUND];
   ACTIONS 9994 [aux_sym__literalInt_token1]; ACTIONS 9996 [aux_sym__literalInt_token2;
   aux_sym__literalInt_token3]; ACTIONS 9994 [aux_sym__literalFloat_token1];
   ACTIONS 9998 [sym_kAdd; sym_kSub]; ACTIONS 10000 [sym_kAt]; ACTIONS 10002 [sym_kTrue;
   sym_kFalse]; ACTIONS 10004 [sym_labelNumber]; ACTIONS 3 [sym__space];
   ACTIONS 5 [sym_ppDirective]; ACTIONS 3 [sym_comment]; ACTIONS 10002 [sym_ppFragmentExpr];
   ACTIONS 9990 [sym__literalStringMultiline]; ACTIONS 10006 [sym_identifier];
   ACTIONS 10008 [sym_kSpecialize]; ACTIONS 10336 [sym_kAsm]; ACTIONS 10338 [sym_kBegin];
   ACTIONS 10340 [sym_kCase]; ACTIONS 10016 [sym_kConst]; ACTIONS 3272 [sym_kElse];
   ACTIONS 10344 [sym_kFor]; ACTIONS 10020 [sym_kFunction]; ACTIONS 10346 [sym_kGoto];
   ACTIONS 10544 [sym_kIf]; ACTIONS 10026 [sym_kInherited]; ACTIONS 10002 [sym_kNil];
   ACTIONS 10000 [sym_kNot]; ACTIONS 10020 [sym_kProcedure]; ACTIONS 10350 [sym_kRaise];
   ACTIONS 10352 [sym_kRepeat]; ACTIONS 10032 [sym_kString]; ACTIONS 10354 [sym_kTry];
   ACTIONS 10036 [sym_kVar]; ACTIONS 10356 [sym_kWhile]; ACTIONS 10358 [sym_kWith]].

(** State 1121. *)
Definition ts_parse_table_1121 : parse_row :=
  [STATE 1310 [sym_if]; STATE 1374 [sym_ifElse; sym_while; sym_repeat; sym_for; sym_foreach;
   sym_try; sym_case; sym_block; sym_asm; sym_with; sym_raise; sym_statement; sym_goto;
   sym_labeledStatement; sym__statement]; STATE 15916 [sym_ifTr; sym_ifElseTr; sym_whileTr;
   sym_repeatTr; sym_forTr; sym_foreachTr; sym_tryTr; sym_caseTr]; STATE 15738 [sym_blockTr];
   STATE 15916 [sym_asmTr; sym_withTr; sym_raiseTr; sym_statementTr; sym_gotoTr;
   sym_labeledStatementTr; sym__statementTr]; STATE 13934 [sym_assignment];
   STATE 11905 [sym_varAssignDef]; STATE 13934 [sym_varDef; sym_constDef];
   STATE 1220 [sym_label]; STATE 8173 [sym__expr; sym_exprConditional]; STATE 7363 [sym__ref;
   sym_lambda; sym_inherited; sym_exprDot; sym_exprDeref; sym_exprAs; sym_exprTpl;
   sym_exprSubscript; sym_exprCall]; STATE 8173 [sym_exprBinary; sym_exprUnary];
   STATE 7363 [sym_exprParens; sym_exprBrackets; sym__literal; sym_literalString];
   STATE 6967 [sym__literalString; sym_literalChar]; STATE 7363 [sym_literalNumber];
   STATE 7660 [sym__literalInt; sym__literalFloat]; STATE 6967 [aux_sym_literalString_repeat1];
   ACTIONS 10546 [anon_sym_SEMI]; ACTIONS 9986 [anon_sym_LBRACK]; ACTIONS 9988 [anon_sym_LPAREN];
   ACTIONS 9990 [aux_sym__literalString_token1]; ACTIONS 9992 [anon_sym_POUND];
   ACTIONS 9994 [aux_sym__literalInt_token1]; ACTIONS 9996 [aux_sym__literalInt_token2;
   aux_sym__literalInt_token3]; ACTIONS 9994 [aux_sym__literalFloat_token1];
   ACTIONS 9998 [sym_kAdd; sym_kSub]; ACTIONS 10000 [sym_kAt]; ACTIONS 10002 [sym_kTrue;
   sym_kFalse]; ACTIONS 10004 [sym_labelNumber]; ACTIONS 3 [sym__space];
   ACTIONS 5 [sym_ppDirective]; ACTIONS 3 [sym_comment]; ACTIONS 10002 [sym_ppFragmentExpr];
   ACTIONS 9990 [sym__literalStringMultiline]; ACTIONS 10006 [sym_identifier];
   ACTIONS 10008 [sym_kSpecialize]; ACTIONS 10336 [sym_kAsm]; ACTIONS 10338 [sym_kBegin];
   ACTIONS 10340 [sym_kCase]; ACTIONS 10016 [sym_kConst]; ACTIONS 3278 [sym_kElse];
   ACTIONS 10344 [sym_kFor]; ACTIONS 10020 [sym_kFunction]; ACTIONS 10346 [sym_kGoto];
   ACTIONS 10544 [sym_kIf]; ACTIONS 10026 [sym_kInherited]; ACTIONS 10002 [sym_kNil];
   ACTIONS 10000 [sym_kNot]; ACTIONS 10020 [sym_kProcedure]; ACTIONS 10350 [sym_kRaise];
   ACTIONS 10352 [sym_kRepeat]; ACTIONS 10032 [sym_kString]; ACTIONS 10354 [sym_kTry];
   ACTIONS 10036 [sym_kVar]; ACTIONS 10356 [sym_kWhile]; ACTIONS 10358 [sym_kWith]].

(** State 1122. *)
Definition ts_parse_table_1122 : parse_row :=
  [STATE 1310 [sym_if]; STATE 1364 [sym_ifElse; sym_while; sym_repeat; sym_for; sym_foreach;
   sym_try; sym_case; sym_block; sym_asm; sym_with; sym_raise; sym_statement; sym_goto;
   sym_labeledStatement; sym__statement]; STATE 15171 [sym_ifTr; sym_ifElseTr; sym_whileTr;
   sym_repeatTr; sym_forTr; sym_foreachTr; sym_tryTr; sym_caseTr]; STATE 15738 [sym_blockTr];
   STATE 15171 [sym_asmTr; sym_withTr; sym_raiseTr; sym_statementTr; sym_gotoTr;
   sym_labeledStatementTr; sym__statementTr]; STATE 13934 [sym_assignment];
   STATE 11905 [sym_varAssignDef]; STATE 13934 [sym_varDef; sym_constDef];
   STATE 1220 [sym_label]; STATE 8173 [sym__expr; sym_exprConditional]; STATE 7363 [sym__ref;
   sym_lambda; sym_inherited; sym_exprDot; sym_exprDeref; sym_exprAs; sym_exprTpl;
   sym_exprSubscript; sym_exprCall]; STATE 8173 [sym_exprBinary; sym_exprUnary];
   STATE 7363 [sym_exprParens; sym_exprBrackets; sym__literal; sym_literalString];
   STATE 6967 [sym__literalString; sym_literalChar]; STATE 7363 [sym_literalNumber];
   STATE 7660 [sym__literalInt; sym__literalFloat]; STATE 6967 [aux_sym_literalString_repeat1];
   ACTIONS 10548 [anon_sym_SEMI]; ACTIONS 9986 [anon_sym_LBRACK]; ACTIONS 9988 [anon_sym_LPAREN];
   ACTIONS 9990 [aux_sym__literalString_token1]; ACTIONS 9992 [anon_sym_POUND];
   ACTIONS 9994 [aux_sym__literalInt_token1]; ACTIONS 9996 [aux_sym__literalInt_token2;
   aux_sym__literalInt_token3]; ACTIONS 9994 [aux_sym__literalFloat_token1];
   ACTIONS 9998 [sym_kAdd; sym_kSub]; ACTIONS 10000 [sym_kAt]; ACTIONS 10002 [sym_kTrue;
   sym_kFalse]; ACTIONS 10004 [sym_labelNumber]; ACTIONS 3 [sym__space];
   ACTIONS 5 [sym_ppDirective]; ACTIONS 3 [sym_comment]; ACTIONS 10002 [sym_ppFragmentExpr];
   ACTIONS 9990 [sym__literalStringMultiline]; ACTIONS 10006 [sym_identifier];
   ACTIONS 10008 [sym_kSpecialize]; ACTIONS 10336 [sym_kAsm]; ACTIONS 10338 [sym_kBegin];
   ACTIONS 10340 [sym_kCase]; ACTIONS 10016 [sym_kConst]; ACTIONS 3282 [sym_kElse];
   ACTIONS 10344 [sym_kFor]; ACTIONS 10020 [sym_kFunction]; ACTIONS 10346 [sym_kGoto];
   ACTIONS 10544 [sym_kIf]; ACTIONS 10026 [sym_kInherited]; ACTIONS 10002 [sym_kNil];
   ACTIONS 10000 [sym_kNot]; ACTIONS 10020 [sym_kProcedure]; ACTIONS 10350 [sym_kRaise];
   ACTIONS 10352 [sym_kRepeat]; ACTIONS 10032 [sym_kString]; ACTIONS 10354 [sym_kTry];
   ACTIONS 10036 [sym_kVar]; ACTIONS 10356 [sym_kWhile]; ACTIONS 10358 [sym_kWith]].

(** State 1123. *)
Definition ts_parse_table_1123 : parse_row :=
  [STATE 1310 [sym_if]; STATE 1340 [sym_ifElse; sym_while; sym_repeat; sym_for; sym_foreach;
   sym_try; sym_case; sym_block; sym_asm; sym_with; sym_raise; sym_statement; sym_goto];
   STATE 1377 [sym_labeledStatement]; STATE 1340 [sym__statement]; STATE 14171 [sym_ifTr;
   sym_ifElseTr; sym_whileTr; sym_repeatTr; sym_forTr; sym_foreachTr; sym_tryTr; sym_caseTr];
   STATE 15738 [sym_blockTr]; STATE 14171 [sym_asmTr; sym_withTr; sym_raiseTr; sym_statementTr;
   sym_gotoTr]; STATE 14168 [sym_labeledStatementTr]; STATE 14171 [sym__statementTr];
   STATE 13934 [sym_assignment]; STATE 11905 [sym_varAssignDef]; STATE 13934 [sym_varDef;
   sym_constDef]; STATE 1220 [sym_label]; STATE 8173 [sym__expr; sym_exprConditional];
   STATE 7363 [sym__ref; sym_lambda; sym_inherited; sym_exprDot; sym_exprDeref; sym_exprAs;
   sym_exprTpl; sym_exprSubscript; sym_exprCall]; STATE 8173 [sym_exprBinary; sym_exprUnary];
   STATE 7363 [sym_exprParens; sym_exprBrackets; sym__literal; sym_literalString];
   STATE 6967 [sym__literalString; sym_literalChar]; STATE 7363 [sym_literalNumber];
   STATE 7660 [sym__literalInt; sym__literalFloat]; STATE 6967 [aux_sym_literalString_repeat1];
   ACTIONS 10550 [anon_sym_SEMI]; ACTIONS 9986 [anon_sym_LBRACK]; ACTIONS 9988 [anon_sym_LPAREN];
   ACTIONS 9990 [aux_sym__literalString_token1]; ACTIONS 9992 [anon_sym_POUND];
   ACTIONS 9994 [aux_sym__literalInt_token1]; ACTIONS 9996 [aux_sym__literalInt_token2;
   aux_sym__literalInt_token3]; ACTIONS 9994 [aux_sym__literalFloat_token1];
   ACTIONS 9998 [sym_kAdd; sym_kSub]; ACTIONS 10000 [sym_kAt]; ACTIONS 10002 [sym_kTrue;
   sym_kFalse]; ACTIONS 10004 [sym_labelNumber]; ACTIONS 3 [sym__space];
   ACTIONS 5 [sym_ppDirective]; ACTIONS 3 [sym_comment]; ACTIONS 10002 [sym_ppFragmentExpr];
   ACTIONS 9990 [sym__literalStringMultiline]; ACTIONS 10006 [sym_identifier];
   ACTIONS 10008 [sym_kSpecialize]; ACTIONS 10336 [sym_kAsm]; ACTIONS 10338 [sym_kBegin];
   ACTIONS 10340 [sym_kCase]; ACTIONS 10016 [sym_kConst]; ACTIONS 3286 [sym_kElse];
   ACTIONS 10344 [sym_kFor]; ACTIONS 10020 [sym_kFunction]; ACTIONS 10346 [sym_kGoto];
   ACTIONS 10544 [sym_kIf]; ACTIONS 10026 [sym_kInherited]; ACTIONS 10002 [sym_kNil];
   ACTIONS 10000 [sym_kNot]; ACTIONS 10020 [sym_kProcedure]; ACTIONS 10350 [sym_kRaise];
   ACTIONS 10352 [sym_kRepeat]; ACTIONS 10032 [sym_kString]; ACTIONS 10354 [sym_kTry];
   ACTIONS 10036 [sym_kVar]; ACTIONS 10356 [sym_kWhile]; ACTIONS 10358 [sym_kWith]].

(** State 1124. *)
Definition ts_parse_table_1124 : parse_row :=
  [STATE 1310 [sym_if]; STATE 1311 [sym_ifElse; sym_while; sym_repeat; sym_for; sym_foreach;
   sym_try; sym_case; sym_block; sym_asm; sym_with; sym_raise; sym_statement; sym_goto;
   sym_labeledStatement; sym__statement]; STATE 15904 [sym_ifTr; sym_ifElseTr; sym_whileTr;
   sym_repeatTr; sym_forTr; sym_foreachTr; sym_tryTr; sym_caseTr]; STATE 15738 [sym_blockTr];
   STATE 15904 [sym_asmTr; sym_withTr; sym_raiseTr; sym_statementTr; sym_gotoTr;
   sym_labeledStatementTr; sym__statementTr]; STATE 13934 [sym_assignment];
   STATE 11905 [sym_varAssignDef]; STATE 13934 [sym_varDef; sym_constDef];
   STATE 1220 [sym_label]; STATE 8173 [sym__expr; sym_exprConditional]; STATE 7363 [sym__ref;
   sym_lambda; sym_inherited; sym_exprDot; sym_exprDeref; sym_exprAs; sym_exprTpl;
   sym_exprSubscript; sym_exprCall]; STATE 8173 [sym_exprBinary; sym_exprUnary];
   STATE 7363 [sym_exprParens; sym_exprBrackets; sym__literal; sym_literalString];
   STATE 6967 [sym__literalString; sym_literalChar]; STATE 7363 [sym_literalNumber];
   STATE 7660 [sym__literalInt; sym__literalFloat]; STATE 6967 [aux_sym_literalString_repeat1];
   ACTIONS 10552 [anon_sym_SEMI]; ACTIONS 9986 [anon_sym_LBRACK]; ACTIONS 9988 [anon_sym_LPAREN];
   ACTIONS 9990 [aux_sym__literalString_token1]; ACTIONS 9992 [anon_sym_POUND];
   ACTIONS 9994 [aux_sym__literalInt_token1]; ACTIONS 9996 [aux_sym__literalInt_token2;
   aux_sym__literalInt_token3]; ACTIONS 9994 [aux_sym__literalFloat_token1];
   ACTIONS 9998 [sym_kAdd; sym_kSub]; ACTIONS 10000 [sym_kAt]; ACTIONS 10002 [sym_kTrue;
   sym_kFalse]; ACTIONS 10004 [sym_labelNumber]; ACTIONS 3 [sym__space];
   ACTIONS 5 [sym_ppDirective]; ACTIONS 3 [sym_comment]; ACTIONS 10002 [sym_ppFragmentExpr];
   ACTIONS 9990 [sym__literalStringMultiline]; ACTIONS 10006 [sym_identifier];
   ACTIONS 10008 [sym_kSpecialize]; ACTIONS 10336 [sym_kAsm]; ACTIONS 10338 [sym_kBegin];
   ACTIONS 10340 [sym_kCase]; ACTIONS 10016 [sym_kConst]; ACTIONS 3290 [sym_kElse];
   ACTIONS 10344 [sym_kFor]; ACTIONS 10020 [sym_kFunction]; ACTIONS 10346 [sym_kGoto];
   ACTIONS 10544 [sym_kIf]; ACTIONS 10026 [sym_kInherited]; ACTIONS 10002 [sym_kNil];
   ACTIONS 10000 [sym_kNot]; ACTIONS 10020 [sym_kProcedure]; ACTIONS 10350 [sym_kRaise];
   ACTIONS 10352 [sym_kRepeat]; ACTIONS 10032 [sym_kString]; ACTIONS 10354 [sym_kTry];
   ACTIONS 10036 [sym_kVar]; ACTIONS 10356 [sym_kWhile]; ACTIONS 10358 [sym_kWith]].

(** State 1125. *)
Definition ts_parse_table_1125 : parse_row :=
  [STATE 1310 [sym_if]; STATE 1337 [sym_ifElse; sym_while; sym_repeat; sym_for; sym_foreach;
   sym_try; sym_case; sym_block; sym_asm; sym_with; sym_raise; sym_statement; sym_goto;
   sym_labeledStatement; sym__statement]; STATE 15932 [sym_ifTr; sym_ifElseTr; sym_whileTr;
   sym_repeatTr; sym_forTr; sym_foreachTr; sym_tryTr; sym_caseTr]; STATE 15738 [sym_blockTr];
   STATE 15932 [sym_asmTr; sym_withTr; sym_raiseTr; sym_statementTr; sym_gotoTr;
   sym_labeledStatementTr; sym__statementTr]; STATE 13934 [sym_assignment];
   STATE 11905 [sym_varAssignDef]; STATE 13934 [sym_varDef; sym_constDef];
   STATE 1220 [sym_label]; STATE 8173 [sym__expr; sym_exprConditional]; STATE 7363 [sym__ref;
   sym_lambda; sym_inherited; sym_exprDot; sym_exprDeref; sym_exprAs; sym_exprTpl;
   sym_exprSubscript; sym_exprCall]; STATE 8173 [sym_exprBinary; sym_exprUnary];
   STATE 7363 [sym_exprParens; sym_exprBrackets; sym__literal; sym_literalString];
   STATE 6967 [sym__literalString; sym_literalChar]; STATE 7363 [sym_literalNumber];
   STATE 7660 [sym__literalInt; sym__literalFloat]; STATE 6967 [aux_sym_literalString_repeat1];
   ACTIONS 10554 [anon_sym_SEMI]; ACTIONS 9986 [anon_sym_LBRACK]; ACTIONS 9988 [anon_sym_LPAREN];
   ACTIONS 9990 [aux_sym__literalString_token1]; ACTIONS 9992 [anon_sym_POUND];
   ACTIONS 9994 [aux_sym__literalInt_token1]; ACTIONS 9996 [aux_sym__literalInt_token2;
   aux_sym__literalInt_token3]; ACTIONS 9994 [aux_sym__literalFloat_token1];
   ACTIONS 9998 [sym_kAdd; sym_kSub]; ACTIONS 10000 [sym_kAt]; ACTIONS 10002 [sym_kTrue;
   sym_kFalse]; ACTIONS 10004 [sym_labelNumber]; ACTIONS 3 [sym__space];
   ACTIONS 5 [sym_ppDirective]; ACTIONS 3 [sym_comment]; ACTIONS 10002 [sym_ppFragmentExpr];
   ACTIONS 9990 [sym__literalStringMultiline]; ACTIONS 10006 [sym_identifier];
   ACTIONS 10008 [sym_kSpecialize]; ACTIONS 10336 [sym_kAsm]; ACTIONS 10338 [sym_kBegin];
   ACTIONS 10340 [sym_kCase]; ACTIONS 10016 [sym_kConst]; ACTIONS 3296 [sym_kElse];
   ACTIONS 10344 [sym_kFor]; ACTIONS 10020 [sym_kFunction]; ACTIONS 10346 [sym_kGoto];
   ACTIONS 10544 [sym_kIf]; ACTIONS 10026 [sym_kInherited]; ACTIONS 10002 [sym_kNil];
   ACTIONS 10000 [sym_kNot]; ACTIONS 10020 [sym_kProcedure]; ACTIONS 10350 [sym_kRaise];
   ACTIONS 10352 [sym_kRepeat]; ACTIONS 10032 [sym_kString]; ACTIONS 10354 [sym_kTry];
   ACTIONS 10036 [sym_kVar]; ACTIONS 10356 [sym_kWhile]; ACTIONS 10358 [sym_kWith]].

(** State 1126. *)
Definition ts_parse_table_1126 : parse_row :=
  [STATE 1310 [sym_if]; STATE 1342 [sym_ifElse; sym_while; sym_repeat; sym_for; sym_foreach;
   sym_try; sym_case; sym_block; sym_asm; sym_with; sym_raise; sym_statement; sym_goto;
   sym_labeledStatement; sym__statement]; STATE 15995 [sym_ifTr; sym_ifElseTr; sym_whileTr;
   sym_repeatTr; sym_forTr; sym_foreachTr; sym_tryTr; sym_caseTr]; STATE 15738 [sym_blockTr];
   STATE 15995 [sym_asmTr; sym_withTr; sym_raiseTr; sym_statementTr; sym_gotoTr;
   sym_labeledStatementTr; sym__statementTr]; STATE 13934 [sym_assignment];
   STATE 11905 [sym_varAssignDef]; STATE 13934 [sym_varDef; sym_constDef];
   STATE 1220 [sym_label]; STATE 8173 [sym__expr; sym_exprConditional]; STATE 7363 [sym__ref;
   sym_lambda; sym_inherited; sym_exprDot; sym_exprDeref; sym_exprAs; sym_exprTpl;
   sym_exprSubscript; sym_exprCall]; STATE 8173 [sym_exprBinary; sym_exprUnary];
   STATE 7363 [sym_exprParens; sym_exprBrackets; sym__literal; sym_literalString];
   STATE 6967 [sym__literalString; sym_literalChar]; STATE 7363 [sym_literalNumber];
   STATE 7660 [sym__literalInt; sym__literalFloat]; STATE 6967 [aux_sym_literalString_repeat1];
   ACTIONS 10556 [anon_sym_SEMI]; ACTIONS 9986 [anon_sym_LBRACK]; ACTIONS 9988 [anon_sym_LPAREN];
   ACTIONS 9990 [aux_sym__literalString_token1]; ACTIONS 9992 [anon_sym_POUND];
   ACTIONS 9994 [aux_sym__literalInt_token1]; ACTIONS 9996 [aux_sym__literalInt_token2;
   aux_sym__literalInt_token3]; ACTIONS 9994 [aux_sym__literalFloat_token1];
   ACTIONS 9998 [sym_kAdd; sym_kSub]; ACTIONS 10000 [sym_kAt]; ACTIONS 10002 [sym_kTrue;
   sym_kFalse]; ACTIONS 10004 [sym_labelNumber]; ACTIONS 3 [sym__space];
   ACTIONS 5 [sym_ppDirective]; ACTIONS 3 [sym_comment]; ACTIONS 10002 [sym_ppFragmentExpr];
   ACTIONS 9990 [sym__literalStringMultiline]; ACTIONS 10006 [sym_identifier];
   ACTIONS 10008 [sym_kSpecialize]; ACTIONS 10336 [sym_kAsm]; ACTIONS 10338 [sym_kBegin];
   ACTIONS 10340 [sym_kCase]; ACTIONS 10016 [sym_kConst]; ACTIONS 3304 [sym_kElse];
   ACTIONS 10344 [sym_kFor]; ACTIONS 10020 [sym_kFunction]; ACTIONS 10346 [sym_kGoto];
   ACTIONS 10544 [sym_kIf]; ACTIONS 10026 [sym_kInherited]; ACTIONS 10002 [sym_kNil];
   ACTIONS 10000 [sym_kNot]; ACTIONS 10020 [sym_kProcedure]; ACTIONS 10350 [sym_kRaise];
   ACTIONS 10352 [sym_kRepeat]; ACTIONS 10032 [sym_kString]; ACTIONS 10354 [sym_kTry];
   ACTIONS 10036 [sym_kVar]; ACTIONS 10356 [sym_kWhile]; ACTIONS 10358 [sym_kWith]].

(** State 1127. *)
Definition ts_parse_table_1127 : parse_row :=
  [STATE 5864 [sym_if]; STATE 5855 [sym_ifElse; sym_while; sym_repeat; sym_for; sym_foreach;
   sym_try; sym_case; sym_block; sym_asm; sym_with; sym_raise; sym_statement; sym_goto;
   sym_labeledStatement; sym__statement]; STATE 15995 [sym_ifTr; sym_ifElseTr; sym_whileTr;
   sym_repeatTr; sym_forTr; sym_foreachTr; sym_tryTr; sym_caseTr]; STATE 15738 [sym_blockTr];
   STATE 15995 [sym_asmTr; sym_withTr; sym_raiseTr; sym_statementTr; sym_gotoTr;
   sym_labeledStatementTr; sym__statementTr]; STATE 13343 [sym_assignment];
   STATE 11905 [sym_varAssignDef]; STATE 13343 [sym_varDef; sym_constDef];
   STATE 1279 [sym_label]; STATE 7969 [sym__expr; sym_exprConditional]; STATE 7363 [sym__ref;
   sym_lambda; sym_inherited; sym_exprDot; sym_exprDeref; sym_exprAs; sym_exprTpl;
   sym_exprSubscript; sym_exprCall]; STATE 7969 [sym_exprBinary; sym_exprUnary];
   STATE 7363 [sym_exprParens; sym_exprBrackets; sym__literal; sym_literalString];
   STATE 6967 [sym__literalString; sym_literalChar]; STATE 7363 [sym_literalNumber];
   STATE 7660 [sym__literalInt; sym__literalFloat]; STATE 6967 [aux_sym_literalString_repeat1];
   ACTIONS 10558 [anon_sym_SEMI]; ACTIONS 9986 [anon_sym_LBRACK]; ACTIONS 9988 [anon_sym_LPAREN];
   ACTIONS 9990 [aux_sym__literalString_token1]; ACTIONS 9992 [anon_sym_POUND];
   ACTIONS 9994 [aux_sym__literalInt_token1]; ACTIONS 9996 [aux_sym__literalInt_token2;
   aux_sym__literalInt_token3]; ACTIONS 9994 [aux_sym__literalFloat_token1];
   ACTIONS 9998 [sym_kAdd; sym_kSub]; ACTIONS 10000 [sym_kAt]; ACTIONS 10002 [sym_kTrue;
   sym_kFalse]; ACTIONS 10004 [sym_labelNumber]; ACTIONS 3 [sym__space];
   ACTIONS 5 [sym_ppDirective]; ACTIONS 3 [sym_comment]; ACTIONS 10002 [sym_ppFragmentExpr];
   ACTIONS 9990 [sym__literalStringMultiline]; ACTIONS 10006 [sym_identifier];
   ACTIONS 10008 [sym_kSpecialize]; ACTIONS 10466 [sym_kAsm]; ACTIONS 10468 [sym_kBegin];
   ACTIONS 10470 [sym_kCase]; ACTIONS 10016 [sym_kConst]; ACTIONS 3304 [sym_kElse];
   ACTIONS 10472 [sym_kFor]; ACTIONS 10020 [sym_kFunction]; ACTIONS 10474 [sym_kGoto];
   ACTIONS 10476 [sym_kIf]; ACTIONS 10026 [sym_kInherited]; ACTIONS 10002 [sym_kNil];
   ACTIONS 10000 [sym_kNot]; ACTIONS 10020 [sym_kProcedure]; ACTIONS 10478 [sym_kRaise];
   ACTIONS 10480 [sym_kRepeat]; ACTIONS 10032 [sym_kString]; ACTIONS 10482 [sym_kTry];
   ACTIONS 10036 [sym_kVar]; ACTIONS 10484 [sym_kWhile]; ACTIONS 10486 [sym_kWith]].

(** State 1128. *)
Definition ts_parse_table_1128 : parse_row :=
  [STATE 1277 [sym_if]; STATE 1301 [sym_ifElse; sym_while; sym_repeat; sym_for; sym_foreach;
   sym_try; sym_case; sym_block; sym_asm; sym_with; sym_raise; sym_statement; sym_goto;
   sym_labeledStatement; sym__statement]; STATE 15874 [sym_ifTr; sym_ifElseTr; sym_whileTr;
   sym_repeatTr; sym_forTr; sym_foreachTr; sym_tryTr; sym_caseTr]; STATE 15738 [sym_blockTr];
   STATE 15874 [sym_asmTr; sym_withTr; sym_raiseTr; sym_statementTr; sym_gotoTr;
   sym_labeledStatementTr; sym__statementTr]; STATE 13593 [sym_assignment];
   STATE 11905 [sym_varAssignDef]; STATE 13593 [sym_varDef; sym_constDef];
   STATE 1216 [sym_label]; STATE 8058 [sym__expr; sym_exprConditional]; STATE 7363 [sym__ref;
   sym_lambda; sym_inherited; sym_exprDot; sym_exprDeref; sym_exprAs; sym_exprTpl;
   sym_exprSubscript; sym_exprCall]; STATE 8058 [sym_exprBinary; sym_exprUnary];
   STATE 7363 [sym_exprParens; sym_exprBrackets; sym__literal; sym_literalString];
   STATE 6967 [sym__literalString; sym_literalChar]; STATE 7363 [sym_literalNumber];
   STATE 7660 [sym__literalInt; sym__literalFloat]; STATE 6967 [aux_sym_literalString_repeat1];
   ACTIONS 10560 [anon_sym_SEMI]; ACTIONS 9986 [anon_sym_LBRACK]; ACTIONS 9988 [anon_sym_LPAREN];
   ACTIONS 9990 [aux_sym__literalString_token1]; ACTIONS 9992 [anon_sym_POUND];
   ACTIONS 9994 [aux_sym__literalInt_token1]; ACTIONS 9996 [aux_sym__literalInt_token2;
   aux_sym__literalInt_token3]; ACTIONS 9994 [aux_sym__literalFloat_token1];
   ACTIONS 9998 [sym_kAdd; sym_kSub]; ACTIONS 10000 [sym_kAt]; ACTIONS 10002 [sym_kTrue;
   sym_kFalse]; ACTIONS 10004 [sym_labelNumber]; ACTIONS 3 [sym__space];
   ACTIONS 5 [sym_ppDirective]; ACTIONS 3 [sym_comment]; ACTIONS 10002 [sym_ppFragmentExpr];
   ACTIONS 9990 [sym__literalStringMultiline]; ACTIONS 10006 [sym_identifier];
   ACTIONS 10008 [sym_kSpecialize]; ACTIONS 10422 [sym_kAsm]; ACTIONS 10424 [sym_kBegin];
   ACTIONS 10426 [sym_kCase]; ACTIONS 10016 [sym_kConst]; ACTIONS 3272 [sym_kElse];
   ACTIONS 10428 [sym_kFor]; ACTIONS 10020 [sym_kFunction]; ACTIONS 10430 [sym_kGoto];
   ACTIONS 10432 [sym_kIf]; ACTIONS 10026 [sym_kInherited]; ACTIONS 10002 [sym_kNil];
   ACTIONS 10000 [sym_kNot]; ACTIONS 10020 [sym_kProcedure]; ACTIONS 10434 [sym_kRaise];
   ACTIONS 10436 [sym_kRepeat]; ACTIONS 10032 [sym_kString]; ACTIONS 10438 [sym_kTry];
   ACTIONS 10036 [sym_kVar]; ACTIONS 10440 [sym_kWhile]; ACTIONS 10442 [sym_kWith]].

(** State 1129. *)
Definition ts_parse_table_1129 : parse_row :=
  [STATE 5851 [sym_if]; STATE 5857 [sym_ifElse; sym_while; sym_repeat; sym_for; sym_foreach;
   sym_try; sym_case; sym_block; sym_asm; sym_with; sym_raise; sym_statement; sym_goto;
   sym_labeledStatement; sym__statement]; STATE 15057 [sym_ifTr; sym_ifElseTr; sym_whileTr;
   sym_repeatTr; sym_forTr; sym_foreachTr; sym_tryTr; sym_caseTr]; STATE 15738 [sym_blockTr];
   STATE 15057 [sym_asmTr; sym_withTr; sym_raiseTr; sym_statementTr; sym_gotoTr;
   sym_labeledStatementTr; sym__statementTr]; STATE 13343 [sym_assignment];
   STATE 11905 [sym_varAssignDef]; STATE 13343 [sym_varDef; sym_constDef];
   STATE 1279 [sym_label]; STATE 7967 [sym__expr; sym_exprConditional]; STATE 7363 [sym__ref;
   sym_lambda; sym_inherited; sym_exprDot; sym_exprDeref; sym_exprAs; sym_exprTpl;
   sym_exprSubscript; sym_exprCall]; STATE 7967 [sym_exprBinary; sym_exprUnary];
   STATE 7363 [sym_exprParens; sym_exprBrackets; sym__literal; sym_literalString];
   STATE 6967 [sym__literalString; sym_literalChar]; STATE 7363 [sym_literalNumber];
   STATE 7660 [sym__literalInt; sym__literalFloat]; STATE 6967 [aux_sym_literalString_repeat1];
   ACTIONS 10562 [anon_sym_SEMI]; ACTIONS 9986 [anon_sym_LBRACK]; ACTIONS 9988 [anon_sym_LPAREN];
   ACTIONS 9990 [aux_sym__literalString_token1]; ACTIONS 9992 [anon_sym_POUND];
   ACTIONS 9994 [aux_sym__literalInt_token1]; ACTIONS 9996 [aux_sym__literalInt_token2;
   aux_sym__literalInt_token3]; ACTIONS 9994 [aux_sym__literalFloat_token1];
   ACTIONS 9998 [sym_kAdd; sym_kSub]; ACTIONS 10000 [sym_kAt]; ACTIONS 10002 [sym_kTrue;
   sym_kFalse]; ACTIONS 10004 [sym_labelNumber]; ACTIONS 3 [sym__space];
   ACTIONS 5 [sym_ppDirective]; ACTIONS 3 [sym_comment]; ACTIONS 10002 [sym_ppFragmentExpr];
   ACTIONS 9990 [sym__literalStringMultiline]; ACTIONS 10006 [sym_identifier];
   ACTIONS 10008 [sym_kSpecialize]; ACTIONS 10466 [sym_kAsm]; ACTIONS 10468 [sym_kBegin];
   ACTIONS 10470 [sym_kCase]; ACTIONS 10016 [sym_kConst]; ACTIONS 10564 [sym_kElse];
   ACTIONS 10472 [sym_kFor]; ACTIONS 10020 [sym_kFunction]; ACTIONS 10474 [sym_kGoto];
   ACTIONS 10476 [sym_kIf]; ACTIONS 10026 [sym_kInherited]; ACTIONS 10002 [sym_kNil];
   ACTIONS 10000 [sym_kNot]; ACTIONS 10020 [sym_kProcedure]; ACTIONS 10478 [sym_kRaise];
   ACTIONS 10480 [sym_kRepeat]; ACTIONS 10032 [sym_kString]; ACTIONS 10482 [sym_kTry];
   ACTIONS 10036 [sym_kVar]; ACTIONS 10484 [sym_kWhile]; ACTIONS 10486 [sym_kWith]].

(** State 1130. *)
Definition ts_parse_table_1130 : parse_row :=
  [ACTIONS 10566 [anon_sym_SEMI; anon_sym_COMMA; anon_sym_LBRACK];
   ACTIONS 10568 [anon_sym_LPAREN]; ACTIONS 10566 [aux_sym__literalString_token1;
   anon_sym_POUND]; ACTIONS 10568 [aux_sym__literalInt_token1];
   ACTIONS 10566 [aux_sym__literalInt_token2; aux_sym__literalInt_token3];
   ACTIONS 10568 [aux_sym__literalFloat_token1]; ACTIONS 10566 [aux_sym_ppUsesBlock_token1;
   aux_sym_ppUsesBlock_token2; aux_sym_ppUsesBlock_token3]; ACTIONS 10568 [sym_kAdd; sym_kSub];
   ACTIONS 10566 [sym_kAt; sym_kTrue; sym_kFalse]; ACTIONS 3 [sym__space];
   ACTIONS 5 [sym_ppDirective]; ACTIONS 3 [sym_comment]; ACTIONS 10566 [sym_ppFragmentExpr;
   sym__literalStringMultiline; sym_identifier; sym_kDefault; sym_kNodefault; sym_kDispId;
   sym_kGeneric; sym_kSpecialize; sym_kOperator; sym_kPublic; sym_kStatic; sym_kVirtual;
   sym_kAbstract; sym_kDynamic; sym_kOverride; sym_kOverload; sym_kReintroduce; sym_kStdcall;
   sym_kCdecl; sym_kCppdecl; sym_kPascal; sym_kRegister; sym_kMwpascal; sym_kExternal;
   sym_kMessage; sym_kDeprecated; sym_kExperimental; sym_kPlatform; sym_kUnimplemented;
   sym_kCvar; sym_kExport; sym_kFar; sym_kNear; sym_kSafecall; sym_kAssembler; sym_kNostackframe;
   sym_kInterrupt; sym_kNoreturn; sym_kIocheck; sym_kLocal; sym_kHardfloat; sym_kSoftfloat;
   sym_kMs_abi_default; sym_kMs_abi_cdecl; sym_kSaveregisters; sym_kSysv_abi_default;
   sym_kSysv_abi_cdecl; sym_kVectorcall; sym_kVarargs; sym_kWinapi; sym_kAlias; sym_kAsm;
   sym_kBegin; sym_kCase; sym_kClass; sym_kConst; sym_kConstructor; sym_kDestructor;
   sym_kExports; sym_kFor; sym_kFunction; sym_kGoto; sym_kIf; sym_kInherited; sym_kInline;
   sym_kLabel; sym_kNil; sym_kNot; sym_kProcedure; sym_kProperty; sym_kRaise; sym_kRepeat;
   sym_kResourcestring; sym_kString; sym_kThreadvar; sym_kTry; sym_kType; sym_kUses; sym_kVar;
   sym_kWhile; sym_kWith]].

(** State 1131. *)
Definition ts_parse_table_1131 : parse_row :=
  [STATE 6213 [sym_if]; STATE 6179 [sym_ifElse; sym_while; sym_repeat; sym_for; sym_foreach;
   sym_try; sym_case; sym_block; sym_asm; sym_with; sym_raise; sym_statement; sym_goto;
   sym_labeledStatement; sym__statement]; STATE 15471 [sym_ifTr; sym_ifElseTr; sym_whileTr;
   sym_repeatTr; sym_forTr; sym_foreachTr; sym_tryTr; sym_caseTr]; STATE 14251 [sym_blockTr];
   STATE 15471 [sym_asmTr; sym_withTr; sym_raiseTr; sym_statementTr; sym_gotoTr;
   sym_labeledStatementTr; sym__statementTr]; STATE 13915 [sym_assignment];
   STATE 11785 [sym_varAssignDef]; STATE 13915 [sym_varDef; sym_constDef];
   STATE 1213 [sym_label]; STATE 8019 [sym__expr; sym_exprConditional]; STATE 7478 [sym__ref;
   sym_lambda; sym_inherited; sym_exprDot; sym_exprDeref; sym_exprAs; sym_exprTpl;
   sym_exprSubscript; sym_exprCall]; STATE 8019 [sym_exprBinary; sym_exprUnary];
   STATE 7478 [sym_exprParens; sym_exprBrackets; sym__literal; sym_literalString];
   STATE 6664 [sym__literalString; sym_literalChar]; STATE 7478 [sym_literalNumber];
   STATE 7742 [sym__literalInt; sym__literalFloat]; STATE 6664 [aux_sym_literalString_repeat1];
   ACTIONS 9962 [anon_sym_SEMI]; ACTIONS 399 [anon_sym_LBRACK]; ACTIONS 401 [anon_sym_LPAREN];
   ACTIONS 403 [aux_sym__literalString_token1]; ACTIONS 405 [anon_sym_POUND];
   ACTIONS 407 [aux_sym__literalInt_token1]; ACTIONS 409 [aux_sym__literalInt_token2;
   aux_sym__literalInt_token3]; ACTIONS 407 [aux_sym__literalFloat_token1];
   ACTIONS 413 [sym_kAdd; sym_kSub]; ACTIONS 415 [sym_kAt]; ACTIONS 417 [sym_kTrue; sym_kFalse];
   ACTIONS 10098 [sym_labelNumber]; ACTIONS 3 [sym__space]; ACTIONS 5 [sym_ppDirective];
   ACTIONS 3 [sym_comment]; ACTIONS 417 [sym_ppFragmentExpr];
   ACTIONS 403 [sym__literalStringMultiline]; ACTIONS 10100 [sym_identifier];
   ACTIONS 423 [sym_kSpecialize]; ACTIONS 427 [sym_kAsm]; ACTIONS 429 [sym_kBegin];
   ACTIONS 431 [sym_kCase]; ACTIONS 433 [sym_kConst]; ACTIONS 3282 [sym_kEnd];
   ACTIONS 437 [sym_kFor]; ACTIONS 439 [sym_kFunction]; ACTIONS 441 [sym_kGoto];
   ACTIONS 443 [sym_kIf]; ACTIONS 445 [sym_kInherited]; ACTIONS 417 [sym_kNil];
   ACTIONS 415 [sym_kNot]; ACTIONS 439 [sym_kProcedure]; ACTIONS 447 [sym_kRaise];
   ACTIONS 449 [sym_kRepeat]; ACTIONS 451 [sym_kString]; ACTIONS 453 [sym_kTry];
   ACTIONS 455 [sym_kVar]; ACTIONS 457 [sym_kWhile]; ACTIONS 459 [sym_kWith]].

(** State 1132. *)
Definition ts_parse_table_1132 : parse_row :=
  [STATE 15084 [sym_if]; STATE 14266 [sym_ifElse; sym_while; sym_repeat; sym_for; sym_foreach;
   sym_try; sym_case; sym_block; sym_asm; sym_with; sym_raise; sym_statement; sym_goto;
   sym_labeledStatement; sym__statement]; STATE 15916 [sym_ifTr; sym_ifElseTr; sym_whileTr;
   sym_repeatTr; sym_forTr; sym_foreachTr; sym_tryTr; sym_caseTr]; STATE 15738 [sym_blockTr];
   STATE 15916 [sym_asmTr; sym_withTr; sym_raiseTr; sym_statementTr; sym_gotoTr;
   sym_labeledStatementTr; sym__statementTr]; STATE 13505 [sym_assignment];
   STATE 11905 [sym_varAssignDef]; STATE 13505 [sym_varDef; sym_constDef];
   STATE 1233 [sym_label]; STATE 8112 [sym__expr; sym_exprConditional]; STATE 7363 [sym__ref;
   sym_lambda; sym_inherited; sym_exprDot; sym_exprDeref; sym_exprAs; sym_exprTpl;
   sym_exprSubscript; sym_exprCall]; STATE 8112 [sym_exprBinary; sym_exprUnary];
   STATE 7363 [sym_exprParens; sym_exprBrackets; sym__literal; sym_literalString];
   STATE 6967 [sym__literalString; sym_literalChar]; STATE 7363 [sym_literalNumber];
   STATE 7660 [sym__literalInt; sym__literalFloat]; STATE 6967 [aux_sym_literalString_repeat1];
   ACTIONS 10570 [anon_sym_SEMI]; ACTIONS 9986 [anon_sym_LBRACK]; ACTIONS 9988 [anon_sym_LPAREN];
   ACTIONS 9990 [aux_sym__literalString_token1]; ACTIONS 9992 [anon_sym_POUND];
   ACTIONS 9994 [aux_sym__literalInt_token1]; ACTIONS 9996 [aux_sym__literalInt_token2;
   aux_sym__literalInt_token3]; ACTIONS 9994 [aux_sym__literalFloat_token1];
   ACTIONS 9998 [sym_kAdd; sym_kSub]; ACTIONS 10000 [sym_kAt]; ACTIONS 10002 [sym_kTrue;
   sym_kFalse]; ACTIONS 10004 [sym_labelNumber]; ACTIONS 3 [sym__space];
   ACTIONS 5 [sym_ppDirective]; ACTIONS 3 [sym_comment]; ACTIONS 10002 [sym_ppFragmentExpr];
   ACTIONS 9990 [sym__literalStringMultiline]; ACTIONS 10006 [sym_identifier];
   ACTIONS 10008 [sym_kSpecialize]; ACTIONS 10276 [sym_kAsm]; ACTIONS 10278 [sym_kBegin];
   ACTIONS 10280 [sym_kCase]; ACTIONS 10016 [sym_kConst]; ACTIONS 3278 [sym_kElse];
   ACTIONS 10282 [sym_kFor]; ACTIONS 10020 [sym_kFunction]; ACTIONS 10284 [sym_kGoto];
   ACTIONS 10572 [sym_kIf]; ACTIONS 10026 [sym_kInherited]; ACTIONS 10002 [sym_kNil];
   ACTIONS 10000 [sym_kNot]; ACTIONS 10020 [sym_kProcedure]; ACTIONS 10288 [sym_kRaise];
   ACTIONS 10290 [sym_kRepeat]; ACTIONS 10032 [sym_kString]; ACTIONS 10292 [sym_kTry];
   ACTIONS 10036 [sym_kVar]; ACTIONS 10294 [sym_kWhile]; ACTIONS 10296 [sym_kWith]].

(** State 1133. *)
Definition ts_parse_table_1133 : parse_row :=
  [STATE 6213 [sym_if]; STATE 6285 [sym_ifElse; sym_while; sym_repeat; sym_for; sym_foreach;
   sym_try; sym_case; sym_block; sym_asm; sym_with; sym_raise; sym_statement; sym_goto;
   sym__statement]; STATE 13777 [sym_ifTr; sym_ifElseTr; sym_whileTr; sym_repeatTr; sym_forTr;
   sym_foreachTr; sym_tryTr; sym_caseTr]; STATE 13296 [sym_blockTr]; STATE 13777 [sym_asmTr;
   sym_withTr; sym_raiseTr; sym_statementTr; sym_gotoTr; sym__statementTr];
   STATE 12751 [sym_assignment]; STATE 11883 [sym_varAssignDef]; STATE 12751 [sym_varDef;
   sym_constDef]; STATE 1200 [sym_label]; STATE 7864 [sym__expr; sym_exprConditional];
   STATE 7341 [sym__ref; sym_lambda; sym_inherited; sym_exprDot; sym_exprDeref; sym_exprAs;
   sym_exprTpl; sym_exprSubscript; sym_exprCall]; STATE 7864 [sym_exprBinary; sym_exprUnary];
   STATE 7341 [sym_exprParens; sym_exprBrackets; sym__literal; sym_literalString];
   STATE 6534 [sym__literalString; sym_literalChar]; STATE 7341 [sym_literalNumber];
   STATE 7552 [sym__literalInt; sym__literalFloat];
   STATE 1200 [aux_sym_labeledStatement_repeat1]; STATE 6534 [aux_sym_literalString_repeat1];
   ACTIONS 10574 [anon_sym_SEMI]; ACTIONS 9634 [anon_sym_LBRACK]; ACTIONS 9636 [anon_sym_LPAREN];
   ACTIONS 9638 [aux_sym__literalString_token1]; ACTIONS 9640 [anon_sym_POUND];
   ACTIONS 9642 [aux_sym__literalInt_token1]; ACTIONS 9644 [aux_sym__literalInt_token2;
   aux_sym__literalInt_token3]; ACTIONS 9642 [aux_sym__literalFloat_token1];
   ACTIONS 9646 [sym_kAdd; sym_kSub]; ACTIONS 9648 [sym_kAt]; ACTIONS 9650 [sym_kTrue;
   sym_kFalse]; ACTIONS 9652 [sym_labelNumber]; ACTIONS 3 [sym__space];
   ACTIONS 5 [sym_ppDirective]; ACTIONS 3 [sym_comment]; ACTIONS 9650 [sym_ppFragmentExpr];
   ACTIONS 9638 [sym__literalStringMultiline]; ACTIONS 9654 [sym_identifier];
   ACTIONS 9656 [sym_kSpecialize]; ACTIONS 9692 [sym_kAsm]; ACTIONS 9694 [sym_kBegin];
   ACTIONS 9696 [sym_kCase]; ACTIONS 9664 [sym_kConst]; ACTIONS 4301 [sym_kElse; sym_kEnd];
   ACTIONS 9698 [sym_kFor]; ACTIONS 9668 [sym_kFunction]; ACTIONS 9700 [sym_kGoto];
   ACTIONS 9702 [sym_kIf]; ACTIONS 9674 [sym_kInherited]; ACTIONS 9650 [sym_kNil];
   ACTIONS 9648 [sym_kNot]; ACTIONS 9668 [sym_kProcedure]; ACTIONS 9704 [sym_kRaise];
   ACTIONS 9706 [sym_kRepeat]; ACTIONS 9680 [sym_kString]; ACTIONS 9708 [sym_kTry];
   ACTIONS 9684 [sym_kVar]; ACTIONS 9710 [sym_kWhile]; ACTIONS 9712 [sym_kWith]].

(** State 1134. *)
Definition ts_parse_table_1134 : parse_row :=
  [ACTIONS 10576 [anon_sym_SEMI; anon_sym_COMMA; anon_sym_LBRACK];
   ACTIONS 10578 [anon_sym_LPAREN]; ACTIONS 10576 [aux_sym__literalString_token1;
   anon_sym_POUND]; ACTIONS 10578 [aux_sym__literalInt_token1];
   ACTIONS 10576 [aux_sym__literalInt_token2; aux_sym__literalInt_token3];
   ACTIONS 10578 [aux_sym__literalFloat_token1]; ACTIONS 10576 [aux_sym_ppUsesBlock_token1;
   aux_sym_ppUsesBlock_token2; aux_sym_ppUsesBlock_token3]; ACTIONS 10578 [sym_kAdd; sym_kSub];
   ACTIONS 10576 [sym_kAt; sym_kTrue; sym_kFalse]; ACTIONS 3 [sym__space];
   ACTIONS 5 [sym_ppDirective]; ACTIONS 3 [sym_comment]; ACTIONS 10576 [sym_ppFragmentExpr;
   sym__literalStringMultiline; sym_identifier; sym_kDefault; sym_kNodefault; sym_kDispId;
   sym_kGeneric; sym_kSpecialize; sym_kOperator; sym_kPublic; sym_kStatic; sym_kVirtual;
   sym_kAbstract; sym_kDynamic; sym_kOverride; sym_kOverload; sym_kReintroduce; sym_kStdcall;
   sym_kCdecl; sym_kCppdecl; sym_kPascal; sym_kRegister; sym_kMwpascal; sym_kExternal;
   sym_kMessage; sym_kDeprecated; sym_kExperimental; sym_kPlatform; sym_kUnimplemented;
   sym_kCvar; sym_kExport; sym_kFar; sym_kNear; sym_kSafecall; sym_kAssembler; sym_kNostackframe;
   sym_kInterrupt; sym_kNoreturn; sym_kIocheck; sym_kLocal; sym_kHardfloat; sym_kSoftfloat;
   sym_kMs_abi_default; sym_kMs_abi_cdecl; sym_kSaveregisters; sym_kSysv_abi_default;
   sym_kSysv_abi_cdecl; sym_kVectorcall; sym_kVarargs; sym_kWinapi; sym_kAlias; sym_kAsm;
   sym_kBegin; sym_kCase; sym_kClass; sym_kConst; sym_kConstructor; sym_kDestructor;
   sym_kExports; sym_kFor; sym_kFunction; sym_kGoto; sym_kIf; sym_kInherited; sym_kInline;
   sym_kLabel; sym_kNil; sym_kNot; sym_kProcedure; sym_kProperty; sym_kRaise; sym_kRepeat;
   sym_kResourcestring; sym_kString; sym_kThreadvar; sym_kTry; sym_kType; sym_kUses; sym_kVar;
   sym_kWhile; sym_kWith]].

(** State 1135. *)
Definition ts_parse_table_1135 : parse_row :=
  [STATE 6167 [sym_if]; STATE 6345 [sym_ifElse; sym_while; sym_repeat; sym_for; sym_foreach;
   sym_try; sym_case; sym_block; sym_asm; sym_with; sym_raise; sym_statement; sym_goto;
   sym_labeledStatement; sym__statement]; STATE 15933 [sym_ifTr; sym_ifElseTr; sym_whileTr;
   sym_repeatTr; sym_forTr; sym_foreachTr; sym_tryTr; sym_caseTr]; STATE 15738 [sym_blockTr];
   STATE 15933 [sym_asmTr; sym_withTr; sym_raiseTr; sym_statementTr; sym_gotoTr;
   sym_labeledStatementTr; sym__statementTr]; STATE 13614 [sym_assignment];
   STATE 11905 [sym_varAssignDef]; STATE 13614 [sym_varDef; sym_constDef];
   STATE 1280 [sym_label]; STATE 8165 [sym__expr; sym_exprConditional]; STATE 7363 [sym__ref;
   sym_lambda; sym_inherited; sym_exprDot; sym_exprDeref; sym_exprAs; sym_exprTpl;
   sym_exprSubscript; sym_exprCall]; STATE 8165 [sym_exprBinary; sym_exprUnary];
   STATE 7363 [sym_exprParens; sym_exprBrackets; sym__literal; sym_literalString];
   STATE 6967 [sym__literalString; sym_literalChar]; STATE 7363 [sym_literalNumber];
   STATE 7660 [sym__literalInt; sym__literalFloat]; STATE 6967 [aux_sym_literalString_repeat1];
   ACTIONS 10580 [anon_sym_SEMI]; ACTIONS 9986 [anon_sym_LBRACK]; ACTIONS 9988 [anon_sym_LPAREN];
   ACTIONS 9990 [aux_sym__literalString_token1]; ACTIONS 9992 [anon_sym_POUND];
   ACTIONS 9994 [aux_sym__literalInt_token1]; ACTIONS 9996 [aux_sym__literalInt_token2;
   aux_sym__literalInt_token3]; ACTIONS 9994 [aux_sym__literalFloat_token1];
   ACTIONS 9998 [sym_kAdd; sym_kSub]; ACTIONS 10000 [sym_kAt]; ACTIONS 10002 [sym_kTrue;
   sym_kFalse]; ACTIONS 10004 [sym_labelNumber]; ACTIONS 3 [sym__space];
   ACTIONS 5 [sym_ppDirective]; ACTIONS 3 [sym_comment]; ACTIONS 10002 [sym_ppFragmentExpr];
   ACTIONS 9990 [sym__literalStringMultiline]; ACTIONS 10006 [sym_identifier];
   ACTIONS 10008 [sym_kSpecialize]; ACTIONS 10010 [sym_kAsm]; ACTIONS 10012 [sym_kBegin];
   ACTIONS 10014 [sym_kCase]; ACTIONS 10016 [sym_kConst]; ACTIONS 10582 [sym_kElse];
   ACTIONS 10018 [sym_kFor]; ACTIONS 10020 [sym_kFunction]; ACTIONS 10022 [sym_kGoto];
   ACTIONS 10584 [sym_kIf]; ACTIONS 10026 [sym_kInherited]; ACTIONS 10002 [sym_kNil];
   ACTIONS 10000 [sym_kNot]; ACTIONS 10020 [sym_kProcedure]; ACTIONS 10028 [sym_kRaise];
   ACTIONS 10030 [sym_kRepeat]; ACTIONS 10032 [sym_kString]; ACTIONS 10034 [sym_kTry];
   ACTIONS 10036 [sym_kVar]; ACTIONS 10038 [sym_kWhile]; ACTIONS 10040 [sym_kWith]].

(** State 1136. *)
Definition ts_parse_table_1136 : parse_row :=
  [STATE 6213 [sym_if]; STATE 6199 [sym_ifElse; sym_while; sym_repeat; sym_for; sym_foreach;
   sym_try; sym_case; sym_block; sym_asm; sym_with; sym_raise; sym_statement; sym_goto];
   STATE 6196 [sym_labeledStatement]; STATE 6199 [sym__statement]; STATE 14736 [sym_ifTr;
   sym_ifElseTr; sym_whileTr; sym_repeatTr; sym_forTr; sym_foreachTr; sym_tryTr; sym_caseTr];
   STATE 14251 [sym_blockTr]; STATE 14736 [sym_asmTr; sym_withTr; sym_raiseTr; sym_statementTr;
   sym_gotoTr]; STATE 14695 [sym_labeledStatementTr]; STATE 14736 [sym__statementTr];
   STATE 13915 [sym_assignment]; STATE 11785 [sym_varAssignDef]; STATE 13915 [sym_varDef;
   sym_constDef]; STATE 1213 [sym_label]; STATE 8019 [sym__expr; sym_exprConditional];
   STATE 7478 [sym__ref; sym_lambda; sym_inherited; sym_exprDot; sym_exprDeref; sym_exprAs;
   sym_exprTpl; sym_exprSubscript; sym_exprCall]; STATE 8019 [sym_exprBinary; sym_exprUnary];
   STATE 7478 [sym_exprParens; sym_exprBrackets; sym__literal; sym_literalString];
   STATE 6664 [sym__literalString; sym_literalChar]; STATE 7478 [sym_literalNumber];
   STATE 7742 [sym__literalInt; sym__literalFloat]; STATE 6664 [aux_sym_literalString_repeat1];
   ACTIONS 9972 [anon_sym_SEMI]; ACTIONS 399 [anon_sym_LBRACK]; ACTIONS 401 [anon_sym_LPAREN];
   ACTIONS 403 [aux_sym__literalString_token1]; ACTIONS 405 [anon_sym_POUND];
   ACTIONS 407 [aux_sym__literalInt_token1]; ACTIONS 409 [aux_sym__literalInt_token2;
   aux_sym__literalInt_token3]; ACTIONS 407 [aux_sym__literalFloat_token1];
   ACTIONS 413 [sym_kAdd; sym_kSub]; ACTIONS 415 [sym_kAt]; ACTIONS 417 [sym_kTrue; sym_kFalse];
   ACTIONS 10098 [sym_labelNumber]; ACTIONS 3 [sym__space]; ACTIONS 5 [sym_ppDirective];
   ACTIONS 3 [sym_comment]; ACTIONS 417 [sym_ppFragmentExpr];
   ACTIONS 403 [sym__literalStringMultiline]; ACTIONS 10100 [sym_identifier];
   ACTIONS 423 [sym_kSpecialize]; ACTIONS 427 [sym_kAsm]; ACTIONS 429 [sym_kBegin];
   ACTIONS 431 [sym_kCase]; ACTIONS 433 [sym_kConst]; ACTIONS 3286 [sym_kEnd];
   ACTIONS 437 [sym_kFor]; ACTIONS 439 [sym_kFunction]; ACTIONS 441 [sym_kGoto];
   ACTIONS 443 [sym_kIf]; ACTIONS 445 [sym_kInherited]; ACTIONS 417 [sym_kNil];
   ACTIONS 415 [sym_kNot]; ACTIONS 439 [sym_kProcedure]; ACTIONS 447 [sym_kRaise];
   ACTIONS 449 [sym_kRepeat]; ACTIONS 451 [sym_kString]; ACTIONS 453 [sym_kTry];
   ACTIONS 455 [sym_kVar]; ACTIONS 457 [sym_kWhile]; ACTIONS 459 [sym_kWith]].

(** State 1137. *)
Definition ts_parse_table_1137 : parse_row :=
  [STATE 15084 [sym_if]; STATE 14455 [sym_ifElse; sym_while; sym_repeat; sym_for; sym_foreach;
   sym_try; sym_case; sym_block; sym_asm; sym_with; sym_raise; sym_statement; sym_goto;
   sym_labeledStatement; sym__statement]; STATE 15171 [sym_ifTr; sym_ifElseTr; sym_whileTr;
   sym_repeatTr; sym_forTr; sym_foreachTr; sym_tryTr; sym_caseTr]; STATE 15738 [sym_blockTr];
   STATE 15171 [sym_asmTr; sym_withTr; sym_raiseTr; sym_statementTr; sym_gotoTr;
   sym_labeledStatementTr; sym__statementTr]; STATE 13505 [sym_assignment];
   STATE 11905 [sym_varAssignDef]; STATE 13505 [sym_varDef; sym_constDef];
   STATE 1233 [sym_label]; STATE 8112 [sym__expr; sym_exprConditional]; STATE 7363 [sym__ref;
   sym_lambda; sym_inherited; sym_exprDot; sym_exprDeref; sym_exprAs; sym_exprTpl;
   sym_exprSubscript; sym_exprCall]; STATE 8112 [sym_exprBinary; sym_exprUnary];
   STATE 7363 [sym_exprParens; sym_exprBrackets; sym__literal; sym_literalString];
   STATE 6967 [sym__literalString; sym_literalChar]; STATE 7363 [sym_literalNumber];
   STATE 7660 [sym__literalInt; sym__literalFloat]; STATE 6967 [aux_sym_literalString_repeat1];
   ACTIONS 10586 [anon_sym_SEMI]; ACTIONS 9986 [anon_sym_LBRACK]; ACTIONS 9988 [anon_sym_LPAREN];
   ACTIONS 9990 [aux_sym__literalString_token1]; ACTIONS 9992 [anon_sym_POUND];
   ACTIONS 9994 [aux_sym__literalInt_token1]; ACTIONS 9996 [aux_sym__literalInt_token2;
   aux_sym__literalInt_token3]; ACTIONS 9994 [aux_sym__literalFloat_token1];
   ACTIONS 9998 [sym_kAdd; sym_kSub]; ACTIONS 10000 [sym_kAt]; ACTIONS 10002 [sym_kTrue;
   sym_kFalse]; ACTIONS 10004 [sym_labelNumber]; ACTIONS 3 [sym__space];
   ACTIONS 5 [sym_ppDirective]; ACTIONS 3 [sym_comment]; ACTIONS 10002 [sym_ppFragmentExpr];
   ACTIONS 9990 [sym__literalStringMultiline]; ACTIONS 10006 [sym_identifier];
   ACTIONS 10008 [sym_kSpecialize]; ACTIONS 10276 [sym_kAsm]; ACTIONS 10278 [sym_kBegin];
   ACTIONS 10280 [sym_kCase]; ACTIONS 10016 [sym_kConst]; ACTIONS 3282 [sym_kElse];
   ACTIONS 10282 [sym_kFor]; ACTIONS 10020 [sym_kFunction]; ACTIONS 10284 [sym_kGoto];
   ACTIONS 10572 [sym_kIf]; ACTIONS 10026 [sym_kInherited]; ACTIONS 10002 [sym_kNil];
   ACTIONS 10000 [sym_kNot]; ACTIONS 10020 [sym_kProcedure]; ACTIONS 10288 [sym_kRaise];
   ACTIONS 10290 [sym_kRepeat]; ACTIONS 10032 [sym_kString]; ACTIONS 10292 [sym_kTry];
   ACTIONS 10036 [sym_kVar]; ACTIONS 10294 [sym_kWhile]; ACTIONS 10296 [sym_kWith]].

(** State 1138. *)
Definition ts_parse_table_1138 : parse_row :=
  [STATE 15084 [sym_if]; STATE 14557 [sym_ifElse; sym_while; sym_repeat; sym_for; sym_foreach;
   sym_try; sym_case; sym_block; sym_asm; sym_with; sym_raise; sym_statement; sym_goto];
   STATE 14542 [sym_labeledStatement]; STATE 14557 [sym__statement]; STATE 14171 [sym_ifTr;
   sym_ifElseTr; sym_whileTr; sym_repeatTr; sym_forTr; sym_foreachTr; sym_tryTr; sym_caseTr];
   STATE 15738 [sym_blockTr]; STATE 14171 [sym_asmTr; sym_withTr; sym_raiseTr; sym_statementTr;
   sym_gotoTr]; STATE 14168 [sym_labeledStatementTr]; STATE 14171 [sym__statementTr];
   STATE 13505 [sym_assignment]; STATE 11905 [sym_varAssignDef]; STATE 13505 [sym_varDef;
   sym_constDef]; STATE 1233 [sym_label]; STATE 8112 [sym__expr; sym_exprConditional];
   STATE 7363 [sym__ref; sym_lambda; sym_inherited; sym_exprDot; sym_exprDeref; sym_exprAs;
   sym_exprTpl; sym_exprSubscript; sym_exprCall]; STATE 8112 [sym_exprBinary; sym_exprUnary];
   STATE 7363 [sym_exprParens; sym_exprBrackets; sym__literal; sym_literalString];
   STATE 6967 [sym__literalString; sym_literalChar]; STATE 7363 [sym_literalNumber];
   STATE 7660 [sym__literalInt; sym__literalFloat]; STATE 6967 [aux_sym_literalString_repeat1];
   ACTIONS 10588 [anon_sym_SEMI]; ACTIONS 9986 [anon_sym_LBRACK]; ACTIONS 9988 [anon_sym_LPAREN];
   ACTIONS 9990 [aux_sym__literalString_token1]; ACTIONS 9992 [anon_sym_POUND];
   ACTIONS 9994 [aux_sym__literalInt_token1]; ACTIONS 9996 [aux_sym__literalInt_token2;
   aux_sym__literalInt_token3]; ACTIONS 9994 [aux_sym__literalFloat_token1];
   ACTIONS 9998 [sym_kAdd; sym_kSub]; ACTIONS 10000 [sym_kAt]; ACTIONS 10002 [sym_kTrue;
   sym_kFalse]; ACTIONS 10004 [sym_labelNumber]; ACTIONS 3 [sym__space];
   ACTIONS 5 [sym_ppDirective]; ACTIONS 3 [sym_comment]; ACTIONS 10002 [sym_ppFragmentExpr];
   ACTIONS 9990 [sym__literalStringMultiline]; ACTIONS 10006 [sym_identifier];
   ACTIONS 10008 [sym_kSpecialize]; ACTIONS 10276 [sym_kAsm]; ACTIONS 10278 [sym_kBegin];
   ACTIONS 10280 [sym_kCase]; ACTIONS 10016 [sym_kConst]; ACTIONS 3286 [sym_kElse];
   ACTIONS 10282 [sym_kFor]; ACTIONS 10020 [sym_kFunction]; ACTIONS 10284 [sym_kGoto];
   ACTIONS 10572 [sym_kIf]; ACTIONS 10026 [sym_kInherited]; ACTIONS 10002 [sym_kNil];
   ACTIONS 10000 [sym_kNot]; ACTIONS 10020 [sym_kProcedure]; ACTIONS 10288 [sym_kRaise];
   ACTIONS 10290 [sym_kRepeat]; ACTIONS 10032 [sym_kString]; ACTIONS 10292 [sym_kTry];
   ACTIONS 10036 [sym_kVar]; ACTIONS 10294 [sym_kWhile]; ACTIONS 10296 [sym_kWith]].

(** State 1139. *)
Definition ts_parse_table_1139 : parse_row :=
  [ACTIONS 10590 [anon_sym_SEMI; anon_sym_COMMA; anon_sym_LBRACK];
   ACTIONS 10592 [anon_sym_LPAREN]; ACTIONS 10590 [aux_sym__literalString_token1;
   anon_sym_POUND]; ACTIONS 10592 [aux_sym__literalInt_token1];
   ACTIONS 10590 [aux_sym__literalInt_token2; aux_sym__literalInt_token3];
   ACTIONS 10592 [aux_sym__literalFloat_token1]; ACTIONS 10590 [aux_sym_ppUsesBlock_token1;
   aux_sym_ppUsesBlock_token2; aux_sym_ppUsesBlock_token3]; ACTIONS 10592 [sym_kAdd; sym_kSub];
   ACTIONS 10590 [sym_kAt; sym_kTrue; sym_kFalse]; ACTIONS 3 [sym__space];
   ACTIONS 5 [sym_ppDirective]; ACTIONS 3 [sym_comment]; ACTIONS 10590 [sym_ppFragmentExpr;
   sym__literalStringMultiline; sym_identifier; sym_kDefault; sym_kNodefault; sym_kDispId;
   sym_kGeneric; sym_kSpecialize; sym_kOperator; sym_kPublic; sym_kStatic; sym_kVirtual;
   sym_kAbstract; sym_kDynamic; sym_kOverride; sym_kOverload; sym_kReintroduce; sym_kStdcall;
   sym_kCdecl; sym_kCppdecl; sym_kPascal; sym_kRegister; sym_kMwpascal; sym_kExternal;
   sym_kMessage; sym_kDeprecated; sym_kExperimental; sym_kPlatform; sym_kUnimplemented;
   sym_kCvar; sym_kExport; sym_kFar; sym_kNear; sym_kSafecall; sym_kAssembler; sym_kNostackframe;
   sym_kInterrupt; sym_kNoreturn; sym_kIocheck; sym_kLocal; sym_kHardfloat; sym_kSoftfloat;
   sym_kMs_abi_default; sym_kMs_abi_cdecl; sym_kSaveregisters; sym_kSysv_abi_default;
   sym_kSysv_abi_cdecl; sym_kVectorcall; sym_kVarargs; sym_kWinapi; sym_kAlias; sym_kAsm;
   sym_kBegin; sym_kCase; sym_kClass; sym_kConst; sym_kConstructor; sym_kDestructor;
   sym_kExports; sym_kFor; sym_kFunction; sym_kGoto; sym_kIf; sym_kInherited; sym_kInline;
   sym_kLabel; sym_kNil; sym_kNot; sym_kProcedure; sym_kProperty; sym_kRaise; sym_kRepeat;
   sym_kResourcestring; sym_kString; sym_kThreadvar; sym_kTry; sym_kType; sym_kUses; sym_kVar;
   sym_kWhile; sym_kWith]].

(** State 1140. *)
Definition ts_parse_table_1140 : parse_row :=
  [ACTIONS 10594 [anon_sym_SEMI; anon_sym_COMMA; anon_sym_LBRACK];
   ACTIONS 10596 [anon_sym_LPAREN]; ACTIONS 10594 [aux_sym__literalString_token1;
   anon_sym_POUND]; ACTIONS 10596 [aux_sym__literalInt_token1];
   ACTIONS 10594 [aux_sym__literalInt_token2; aux_sym__literalInt_token3];
   ACTIONS 10596 [aux_sym__literalFloat_token1]; ACTIONS 10594 [aux_sym_ppUsesBlock_token1;
   aux_sym_ppUsesBlock_token2; aux_sym_ppUsesBlock_token3]; ACTIONS 10596 [sym_kAdd; sym_kSub];
   ACTIONS 10594 [sym_kAt; sym_kTrue; sym_kFalse]; ACTIONS 3 [sym__space];
   ACTIONS 5 [sym_ppDirective]; ACTIONS 3 [sym_comment]; ACTIONS 10594 [sym_ppFragmentExpr;
   sym__literalStringMultiline; sym_identifier; sym_kDefault; sym_kNodefault; sym_kDispId;
   sym_kGeneric; sym_kSpecialize; sym_kOperator; sym_kPublic; sym_kStatic; sym_kVirtual;
   sym_kAbstract; sym_kDynamic; sym_kOverride; sym_kOverload; sym_kReintroduce; sym_kStdcall;
   sym_kCdecl; sym_kCppdecl; sym_kPascal; sym_kRegister; sym_kMwpascal; sym_kExternal;
   sym_kMessage; sym_kDeprecated; sym_kExperimental; sym_kPlatform; sym_kUnimplemented;
   sym_kCvar; sym_kExport; sym_kFar; sym_kNear; sym_kSafecall; sym_kAssembler; sym_kNostackframe;
   sym_kInterrupt; sym_kNoreturn; sym_kIocheck; sym_kLocal; sym_kHardfloat; sym_kSoftfloat;
   sym_kMs_abi_default; sym_kMs_abi_cdecl; sym_kSaveregisters; sym_kSysv_abi_default;
   sym_kSysv_abi_cdecl; sym_kVectorcall; sym_kVarargs; sym_kWinapi; sym_kAlias; sym_kAsm;
   sym_kBegin; sym_kCase; sym_kClass; sym_kConst; sym_kConstructor; sym_kDestructor;
   sym_kExports; sym_kFor; sym_kFunction; sym_kGoto; sym_kIf; sym_kInherited; sym_kInline;
   sym_kLabel; sym_kNil; sym_kNot; sym_kProcedure; sym_kProperty; sym_kRaise; sym_kRepeat;
   sym_kResourcestring; sym_kString; sym_kThreadvar; sym_kTry; sym_kType; sym_kUses; sym_kVar;
   sym_kWhile; sym_kWith]].

(** State 1141. *)
Definition ts_parse_table_1141 : parse_row :=
  [ACTIONS 10594 [anon_sym_SEMI; anon_sym_COMMA; anon_sym_LBRACK];
   ACTIONS 10596 [anon_sym_LPAREN]; ACTIONS 10594 [aux_sym__literalString_token1;
   anon_sym_POUND]; ACTIONS 10596 [aux_sym__literalInt_token1];
   ACTIONS 10594 [aux_sym__literalInt_token2; aux_sym__literalInt_token3];
   ACTIONS 10596 [aux_sym__literalFloat_token1]; ACTIONS 10594 [aux_sym_ppUsesBlock_token1;
   aux_sym_ppUsesBlock_token2; aux_sym_ppUsesBlock_token3]; ACTIONS 10596 [sym_kAdd; sym_kSub];
   ACTIONS 10594 [sym_kAt; sym_kTrue; sym_kFalse]; ACTIONS 3 [sym__space];
   ACTIONS 5 [sym_ppDirective]; ACTIONS 3 [sym_comment]; ACTIONS 10594 [sym_ppFragmentExpr;
   sym__literalStringMultiline; sym_identifier; sym_kDefault; sym_kNodefault; sym_kDispId;
   sym_kGeneric; sym_kSpecialize; sym_kOperator; sym_kPublic; sym_kStatic; sym_kVirtual;
   sym_kAbstract; sym_kDynamic; sym_kOverride; sym_kOverload; sym_kReintroduce; sym_kStdcall;
   sym_kCdecl; sym_kCppdecl; sym_kPascal; sym_kRegister; sym_kMwpascal; sym_kExternal;
   sym_kMessage; sym_kDeprecated; sym_kExperimental; sym_kPlatform; sym_kUnimplemented;
   sym_kCvar; sym_kExport; sym_kFar; sym_kNear; sym_kSafecall; sym_kAssembler; sym_kNostackframe;
   sym_kInterrupt; sym_kNoreturn; sym_kIocheck; sym_kLocal; sym_kHardfloat; sym_kSoftfloat;
   sym_kMs_abi_default; sym_kMs_abi_cdecl; sym_kSaveregisters; sym_kSysv_abi_default;
   sym_kSysv_abi_cdecl; sym_kVectorcall; sym_kVarargs; sym_kWinapi; sym_kAlias; sym_kAsm;
   sym_kBegin; sym_kCase; sym_kClass; sym_kConst; sym_kConstructor; sym_kDestructor;
   sym_kExports; sym_kFor; sym_kFunction; sym_kGoto; sym_kIf; sym_kInherited; sym_kInline;
   sym_kLabel; sym_kNil; sym_kNot; sym_kProcedure; sym_kProperty; sym_kRaise; sym_kRepeat;
   sym_kResourcestring; sym_kString; sym_kThreadvar; sym_kTry; sym_kType; sym_kUses; sym_kVar;
   sym_kWhile; sym_kWith]].

(** State 1142. *)
Definition ts_parse_table_1142 : parse_row :=
  [STATE 1249 [sym_if]; STATE 1313 [sym_ifElse; sym_while; sym_repeat; sym_for; sym_foreach;
   sym_try; sym_case; sym_block; sym_asm; sym_with; sym_raise; sym_statement; sym_goto;
   sym_labeledStatement; sym__statement]; STATE 15889 [sym_ifTr; sym_ifElseTr; sym_whileTr;
   sym_repeatTr; sym_forTr; sym_foreachTr; sym_tryTr; sym_caseTr]; STATE 15738 [sym_blockTr];
   STATE 15889 [sym_asmTr; sym_withTr; sym_raiseTr; sym_statementTr; sym_gotoTr;
   sym_labeledStatementTr; sym__statementTr]; STATE 13934 [sym_assignment];
   STATE 11905 [sym_varAssignDef]; STATE 13934 [sym_varDef; sym_constDef];
   STATE 1220 [sym_label]; STATE 7948 [sym__expr; sym_exprConditional]; STATE 7363 [sym__ref;
   sym_lambda; sym_inherited; sym_exprDot; sym_exprDeref; sym_exprAs; sym_exprTpl;
   sym_exprSubscript; sym_exprCall]; STATE 7948 [sym_exprBinary; sym_exprUnary];
   STATE 7363 [sym_exprParens; sym_exprBrackets; sym__literal; sym_literalString];
   STATE 6967 [sym__literalString; sym_literalChar]; STATE 7363 [sym_literalNumber];
   STATE 7660 [sym__literalInt; sym__literalFloat]; STATE 6967 [aux_sym_literalString_repeat1];
   ACTIONS 10334 [anon_sym_SEMI]; ACTIONS 9986 [anon_sym_LBRACK]; ACTIONS 9988 [anon_sym_LPAREN];
   ACTIONS 9990 [aux_sym__literalString_token1]; ACTIONS 9992 [anon_sym_POUND];
   ACTIONS 9994 [aux_sym__literalInt_token1]; ACTIONS 9996 [aux_sym__literalInt_token2;
   aux_sym__literalInt_token3]; ACTIONS 9994 [aux_sym__literalFloat_token1];
   ACTIONS 9998 [sym_kAdd; sym_kSub]; ACTIONS 10000 [sym_kAt]; ACTIONS 10002 [sym_kTrue;
   sym_kFalse]; ACTIONS 10004 [sym_labelNumber]; ACTIONS 3 [sym__space];
   ACTIONS 5 [sym_ppDirective]; ACTIONS 3 [sym_comment]; ACTIONS 10002 [sym_ppFragmentExpr];
   ACTIONS 9990 [sym__literalStringMultiline]; ACTIONS 10006 [sym_identifier];
   ACTIONS 10008 [sym_kSpecialize]; ACTIONS 10336 [sym_kAsm]; ACTIONS 10338 [sym_kBegin];
   ACTIONS 10340 [sym_kCase]; ACTIONS 10016 [sym_kConst]; ACTIONS 10540 [sym_kElse];
   ACTIONS 10344 [sym_kFor]; ACTIONS 10020 [sym_kFunction]; ACTIONS 10346 [sym_kGoto];
   ACTIONS 10348 [sym_kIf]; ACTIONS 10026 [sym_kInherited]; ACTIONS 10002 [sym_kNil];
   ACTIONS 10000 [sym_kNot]; ACTIONS 10020 [sym_kProcedure]; ACTIONS 10350 [sym_kRaise];
   ACTIONS 10352 [sym_kRepeat]; ACTIONS 10032 [sym_kString]; ACTIONS 10354 [sym_kTry];
   ACTIONS 10036 [sym_kVar]; ACTIONS 10356 [sym_kWhile]; ACTIONS 10358 [sym_kWith]].

(** State 1143. *)
Definition ts_parse_table_1143 : parse_row :=
  [STATE 15084 [sym_if]; STATE 14621 [sym_ifElse; sym_while; sym_repeat; sym_for; sym_foreach;
   sym_try; sym_case; sym_block; sym_asm; sym_with; sym_raise; sym_statement; sym_goto;
   sym_labeledStatement; sym__statement]; STATE 15904 [sym_ifTr; sym_ifElseTr; sym_whileTr;
   sym_repeatTr; sym_forTr; sym_foreachTr; sym_tryTr; sym_caseTr]; STATE 15738 [sym_blockTr];
   STATE 15904 [sym_asmTr; sym_withTr; sym_raiseTr; sym_statementTr; sym_gotoTr;
   sym_labeledStatementTr; sym__statementTr]; STATE 13505 [sym_assignment];
   STATE 11905 [sym_varAssignDef]; STATE 13505 [sym_varDef; sym_constDef];
   STATE 1233 [sym_label]; STATE 8112 [sym__expr; sym_exprConditional]; STATE 7363 [sym__ref;
   sym_lambda; sym_inherited; sym_exprDot; sym_exprDeref; sym_exprAs; sym_exprTpl;
   sym_exprSubscript; sym_exprCall]; STATE 8112 [sym_exprBinary; sym_exprUnary];
   STATE 7363 [sym_exprParens; sym_exprBrackets; sym__literal; sym_literalString];
   STATE 6967 [sym__literalString; sym_literalChar]; STATE 7363 [sym_literalNumber];
   STATE 7660 [sym__literalInt; sym__literalFloat]; STATE 6967 [aux_sym_literalString_repeat1];
   ACTIONS 10598 [anon_sym_SEMI]; ACTIONS 9986 [anon_sym_LBRACK]; ACTIONS 9988 [anon_sym_LPAREN];
   ACTIONS 9990 [aux_sym__literalString_token1]; ACTIONS 9992 [anon_sym_POUND];
   ACTIONS 9994 [aux_sym__literalInt_token1]; ACTIONS 9996 [aux_sym__literalInt_token2;
   aux_sym__literalInt_token3]; ACTIONS 9994 [aux_sym__literalFloat_token1];
   ACTIONS 9998 [sym_kAdd; sym_kSub]; ACTIONS 10000 [sym_kAt]; ACTIONS 10002 [sym_kTrue;
   sym_kFalse]; ACTIONS 10004 [sym_labelNumber]; ACTIONS 3 [sym__space];
   ACTIONS 5 [sym_ppDirective]; ACTIONS 3 [sym_comment]; ACTIONS 10002 [sym_ppFragmentExpr];
   ACTIONS 9990 [sym__literalStringMultiline]; ACTIONS 10006 [sym_identifier];
   ACTIONS 10008 [sym_kSpecialize]; ACTIONS 10276 [sym_kAsm]; ACTIONS 10278 [sym_kBegin];
   ACTIONS 10280 [sym_kCase]; ACTIONS 10016 [sym_kConst]; ACTIONS 3290 [sym_kElse];
   ACTIONS 10282 [sym_kFor]; ACTIONS 10020 [sym_kFunction]; ACTIONS 10284 [sym_kGoto];
   ACTIONS 10572 [sym_kIf]; ACTIONS 10026 [sym_kInherited]; ACTIONS 10002 [sym_kNil];
   ACTIONS 10000 [sym_kNot]; ACTIONS 10020 [sym_kProcedure]; ACTIONS 10288 [sym_kRaise];
   ACTIONS 10290 [sym_kRepeat]; ACTIONS 10032 [sym_kString]; ACTIONS 10292 [sym_kTry];
   ACTIONS 10036 [sym_kVar]; ACTIONS 10294 [sym_kWhile]; ACTIONS 10296 [sym_kWith]].

(** State 1144. *)
Definition ts_parse_table_1144 : parse_row :=
  [STATE 15084 [sym_if]; STATE 14625 [sym_ifElse; sym_while; sym_repeat; sym_for; sym_foreach;
   sym_try; sym_case; sym_block; sym_asm; sym_with; sym_raise; sym_statement; sym_goto;
   sym_labeledStatement; sym__statement]; STATE 15932 [sym_ifTr; sym_ifElseTr; sym_whileTr;
   sym_repeatTr; sym_forTr; sym_foreachTr; sym_tryTr; sym_caseTr]; STATE 15738 [sym_blockTr];
   STATE 15932 [sym_asmTr; sym_withTr; sym_raiseTr; sym_statementTr; sym_gotoTr;
   sym_labeledStatementTr; sym__statementTr]; STATE 13505 [sym_assignment];
   STATE 11905 [sym_varAssignDef]; STATE 13505 [sym_varDef; sym_constDef];
   STATE 1233 [sym_label]; STATE 8112 [sym__expr; sym_exprConditional]; STATE 7363 [sym__ref;
   sym_lambda; sym_inherited; sym_exprDot; sym_exprDeref; sym_exprAs; sym_exprTpl;
   sym_exprSubscript; sym_exprCall]; STATE 8112 [sym_exprBinary; sym_exprUnary];
   STATE 7363 [sym_exprParens; sym_exprBrackets; sym__literal; sym_literalString];
   STATE 6967 [sym__literalString; sym_literalChar]; STATE 7363 [sym_literalNumber];
   STATE 7660 [sym__literalInt; sym__literalFloat]; STATE 6967 [aux_sym_literalString_repeat1];
   ACTIONS 10600 [anon_sym_SEMI]; ACTIONS 9986 [anon_sym_LBRACK]; ACTIONS 9988 [anon_sym_LPAREN];
   ACTIONS 9990 [aux_sym__literalString_token1]; ACTIONS 9992 [anon_sym_POUND];
   ACTIONS 9994 [aux_sym__literalInt_token1]; ACTIONS 9996 [aux_sym__literalInt_token2;
   aux_sym__literalInt_token3]; ACTIONS 9994 [aux_sym__literalFloat_token1];
   ACTIONS 9998 [sym_kAdd; sym_kSub]; ACTIONS 10000 [sym_kAt]; ACTIONS 10002 [sym_kTrue;
   sym_kFalse]; ACTIONS 10004 [sym_labelNumber]; ACTIONS 3 [sym__space];
   ACTIONS 5 [sym_ppDirective]; ACTIONS 3 [sym_comment]; ACTIONS 10002 [sym_ppFragmentExpr];
   ACTIONS 9990 [sym__literalStringMultiline]; ACTIONS 10006 [sym_identifier];
   ACTIONS 10008 [sym_kSpecialize]; ACTIONS 10276 [sym_kAsm]; ACTIONS 10278 [sym_kBegin];
   ACTIONS 10280 [sym_kCase]; ACTIONS 10016 [sym_kConst]; ACTIONS 3296 [sym_kElse];
   ACTIONS 10282 [sym_kFor]; ACTIONS 10020 [sym_kFunction]; ACTIONS 10284 [sym_kGoto];
   ACTIONS 10572 [sym_kIf]; ACTIONS 10026 [sym_kInherited]; ACTIONS 10002 [sym_kNil];
   ACTIONS 10000 [sym_kNot]; ACTIONS 10020 [sym_kProcedure]; ACTIONS 10288 [sym_kRaise];
   ACTIONS 10290 [sym_kRepeat]; ACTIONS 10032 [sym_kString]; ACTIONS 10292 [sym_kTry];
   ACTIONS 10036 [sym_kVar]; ACTIONS 10294 [sym_kWhile]; ACTIONS 10296 [sym_kWith]].

(** State 1145. *)
Definition ts_parse_table_1145 : parse_row :=
  [STATE 15084 [sym_if]; STATE 14699 [sym_ifElse; sym_while; sym_repeat; sym_for; sym_foreach;
   sym_try; sym_case; sym_block; sym_asm; sym_with; sym_raise; sym_statement; sym_goto;
   sym_labeledStatement; sym__statement]; STATE 15995 [sym_ifTr; sym_ifElseTr; sym_whileTr;
   sym_repeatTr; sym_forTr; sym_foreachTr; sym_tryTr; sym_caseTr]; STATE 15738 [sym_blockTr];
   STATE 15995 [sym_asmTr; sym_withTr; sym_raiseTr; sym_statementTr; sym_gotoTr;
   sym_labeledStatementTr; sym__statementTr]; STATE 13505 [sym_assignment];
   STATE 11905 [sym_varAssignDef]; STATE 13505 [sym_varDef; sym_constDef];
   STATE 1233 [sym_label]; STATE 8112 [sym__expr; sym_exprConditional]; STATE 7363 [sym__ref;
   sym_lambda; sym_inherited; sym_exprDot; sym_exprDeref; sym_exprAs; sym_exprTpl;
   sym_exprSubscript; sym_exprCall]; STATE 8112 [sym_exprBinary; sym_exprUnary];
   STATE 7363 [sym_exprParens; sym_exprBrackets; sym__literal; sym_literalString];
   STATE 6967 [sym__literalString; sym_literalChar]; STATE 7363 [sym_literalNumber];
   STATE 7660 [sym__literalInt; sym__literalFloat]; STATE 6967 [aux_sym_literalString_repeat1];
   ACTIONS 10602 [anon_sym_SEMI]; ACTIONS 9986 [anon_sym_LBRACK]; ACTIONS 9988 [anon_sym_LPAREN];
   ACTIONS 9990 [aux_sym__literalString_token1]; ACTIONS 9992 [anon_sym_POUND];
   ACTIONS 9994 [aux_sym__literalInt_token1]; ACTIONS 9996 [aux_sym__literalInt_token2;
   aux_sym__literalInt_token3]; ACTIONS 9994 [aux_sym__literalFloat_token1];
   ACTIONS 9998 [sym_kAdd; sym_kSub]; ACTIONS 10000 [sym_kAt]; ACTIONS 10002 [sym_kTrue;
   sym_kFalse]; ACTIONS 10004 [sym_labelNumber]; ACTIONS 3 [sym__space];
   ACTIONS 5 [sym_ppDirective]; ACTIONS 3 [sym_comment]; ACTIONS 10002 [sym_ppFragmentExpr];
   ACTIONS 9990 [sym__literalStringMultiline]; ACTIONS 10006 [sym_identifier];
   ACTIONS 10008 [sym_kSpecialize]; ACTIONS 10276 [sym_kAsm]; ACTIONS 10278 [sym_kBegin];
   ACTIONS 10280 [sym_kCase]; ACTIONS 10016 [sym_kConst]; ACTIONS 3304 [sym_kElse];
   ACTIONS 10282 [sym_kFor]; ACTIONS 10020 [sym_kFunction]; ACTIONS 10284 [sym_kGoto];
   ACTIONS 10572 [sym_kIf]; ACTIONS 10026 [sym_kInherited]; ACTIONS 10002 [sym_kNil];
   ACTIONS 10000 [sym_kNot]; ACTIONS 10020 [sym_kProcedure]; ACTIONS 10288 [sym_kRaise];
   ACTIONS 10290 [sym_kRepeat]; ACTIONS 10032 [sym_kString]; ACTIONS 10292 [sym_kTry];
   ACTIONS 10036 [sym_kVar]; ACTIONS 10294 [sym_kWhile]; ACTIONS 10296 [sym_kWith]].

(** State 1146. *)
Definition ts_parse_table_1146 : parse_row :=
  [STATE 6061 [sym_if]; STATE 6119 [sym_ifElse; sym_while; sym_repeat; sym_for; sym_foreach;
   sym_try; sym_case; sym_block; sym_asm; sym_with; sym_raise; sym_statement; sym_goto;
   sym__statement]; STATE 13396 [sym_ifTr; sym_ifElseTr; sym_whileTr; sym_repeatTr; sym_forTr;
   sym_foreachTr; sym_tryTr; sym_caseTr]; STATE 13949 [sym_blockTr]; STATE 13396 [sym_asmTr;
   sym_withTr; sym_raiseTr; sym_statementTr; sym_gotoTr; sym__statementTr];
   STATE 12950 [sym_assignment]; STATE 11871 [sym_varAssignDef]; STATE 12950 [sym_varDef;
   sym_constDef]; STATE 1151 [sym_label]; STATE 7879 [sym__expr; sym_exprConditional];
   STATE 7259 [sym__ref; sym_lambda; sym_inherited; sym_exprDot; sym_exprDeref; sym_exprAs;
   sym_exprTpl; sym_exprSubscript; sym_exprCall]; STATE 7879 [sym_exprBinary; sym_exprUnary];
   STATE 7259 [sym_exprParens; sym_exprBrackets; sym__literal; sym_literalString];
   STATE 6541 [sym__literalString; sym_literalChar]; STATE 7259 [sym_literalNumber];
   STATE 7426 [sym__literalInt; sym__literalFloat];
   STATE 1151 [aux_sym_labeledStatement_repeat1]; STATE 6541 [aux_sym_literalString_repeat1];
   ACTIONS 9866 [anon_sym_SEMI]; ACTIONS 673 [anon_sym_LBRACK]; ACTIONS 675 [anon_sym_LPAREN];
   ACTIONS 677 [aux_sym__literalString_token1]; ACTIONS 679 [anon_sym_POUND];
   ACTIONS 681 [aux_sym__literalInt_token1]; ACTIONS 683 [aux_sym__literalInt_token2;
   aux_sym__literalInt_token3]; ACTIONS 681 [aux_sym__literalFloat_token1];
   ACTIONS 685 [sym_kAdd; sym_kSub]; ACTIONS 687 [sym_kAt]; ACTIONS 689 [sym_kTrue; sym_kFalse];
   ACTIONS 9862 [sym_labelNumber]; ACTIONS 3 [sym__space]; ACTIONS 5 [sym_ppDirective];
   ACTIONS 3 [sym_comment]; ACTIONS 689 [sym_ppFragmentExpr];
   ACTIONS 677 [sym__literalStringMultiline]; ACTIONS 9864 [sym_identifier];
   ACTIONS 695 [sym_kSpecialize]; ACTIONS 697 [sym_kAsm]; ACTIONS 699 [sym_kBegin];
   ACTIONS 701 [sym_kCase]; ACTIONS 703 [sym_kConst]; ACTIONS 4301 [sym_kExcept; sym_kFinally];
   ACTIONS 709 [sym_kFor]; ACTIONS 711 [sym_kFunction]; ACTIONS 713 [sym_kGoto];
   ACTIONS 715 [sym_kIf]; ACTIONS 717 [sym_kInherited]; ACTIONS 689 [sym_kNil];
   ACTIONS 687 [sym_kNot]; ACTIONS 711 [sym_kProcedure]; ACTIONS 719 [sym_kRaise];
   ACTIONS 721 [sym_kRepeat]; ACTIONS 723 [sym_kString]; ACTIONS 725 [sym_kTry];
   ACTIONS 727 [sym_kVar]; ACTIONS 729 [sym_kWhile]; ACTIONS 731 [sym_kWith]].

(** State 1147. *)
Definition ts_parse_table_1147 : parse_row :=
  [STATE 6214 [sym_if]; STATE 6243 [sym_ifElse; sym_while; sym_repeat; sym_for; sym_foreach;
   sym_try; sym_case; sym_block; sym_asm; sym_with; sym_raise; sym_statement; sym_goto;
   sym_labeledStatement; sym__statement]; STATE 15874 [sym_ifTr; sym_ifElseTr; sym_whileTr;
   sym_repeatTr; sym_forTr; sym_foreachTr; sym_tryTr; sym_caseTr]; STATE 15738 [sym_blockTr];
   STATE 15874 [sym_asmTr; sym_withTr; sym_raiseTr; sym_statementTr; sym_gotoTr;
   sym_labeledStatementTr; sym__statementTr]; STATE 13660 [sym_assignment];
   STATE 11905 [sym_varAssignDef]; STATE 13660 [sym_varDef; sym_constDef];
   STATE 1257 [sym_label]; STATE 7979 [sym__expr; sym_exprConditional]; STATE 7363 [sym__ref;
   sym_lambda; sym_inherited; sym_exprDot; sym_exprDeref; sym_exprAs; sym_exprTpl;
   sym_exprSubscript; sym_exprCall]; STATE 7979 [sym_exprBinary; sym_exprUnary];
   STATE 7363 [sym_exprParens; sym_exprBrackets; sym__literal; sym_literalString];
   STATE 6967 [sym__literalString; sym_literalChar]; STATE 7363 [sym_literalNumber];
   STATE 7660 [sym__literalInt; sym__literalFloat]; STATE 6967 [aux_sym_literalString_repeat1];
   ACTIONS 10604 [anon_sym_SEMI]; ACTIONS 9986 [anon_sym_LBRACK]; ACTIONS 9988 [anon_sym_LPAREN];
   ACTIONS 9990 [aux_sym__literalString_token1]; ACTIONS 9992 [anon_sym_POUND];
   ACTIONS 9994 [aux_sym__literalInt_token1]; ACTIONS 9996 [aux_sym__literalInt_token2;
   aux_sym__literalInt_token3]; ACTIONS 9994 [aux_sym__literalFloat_token1];
   ACTIONS 9998 [sym_kAdd; sym_kSub]; ACTIONS 10000 [sym_kAt]; ACTIONS 10002 [sym_kTrue;
   sym_kFalse]; ACTIONS 10004 [sym_labelNumber]; ACTIONS 3 [sym__space];
   ACTIONS 5 [sym_ppDirective]; ACTIONS 3 [sym_comment]; ACTIONS 10002 [sym_ppFragmentExpr];
   ACTIONS 9990 [sym__literalStringMultiline]; ACTIONS 10006 [sym_identifier];
   ACTIONS 10008 [sym_kSpecialize]; ACTIONS 10200 [sym_kAsm]; ACTIONS 10202 [sym_kBegin];
   ACTIONS 10204 [sym_kCase]; ACTIONS 10016 [sym_kConst]; ACTIONS 3272 [sym_kElse];
   ACTIONS 10208 [sym_kFor]; ACTIONS 10020 [sym_kFunction]; ACTIONS 10210 [sym_kGoto];
   ACTIONS 10212 [sym_kIf]; ACTIONS 10026 [sym_kInherited]; ACTIONS 10002 [sym_kNil];
   ACTIONS 10000 [sym_kNot]; ACTIONS 10020 [sym_kProcedure]; ACTIONS 10214 [sym_kRaise];
   ACTIONS 10216 [sym_kRepeat]; ACTIONS 10032 [sym_kString]; ACTIONS 10218 [sym_kTry];
   ACTIONS 10036 [sym_kVar]; ACTIONS 10220 [sym_kWhile]; ACTIONS 10222 [sym_kWith]].

(** State 1148. *)
Definition ts_parse_table_1148 : parse_row :=
  [STATE 6212 [sym_if]; STATE 6331 [sym_ifElse; sym_while; sym_repeat; sym_for; sym_foreach;
   sym_try; sym_case; sym_block; sym_asm; sym_with; sym_raise; sym_statement; sym_goto;
   sym_labeledStatement; sym__statement]; STATE 14894 [sym_ifTr; sym_ifElseTr; sym_whileTr;
   sym_repeatTr; sym_forTr; sym_foreachTr; sym_tryTr; sym_caseTr]; STATE 15738 [sym_blockTr];
   STATE 14894 [sym_asmTr; sym_withTr; sym_raiseTr; sym_statementTr; sym_gotoTr;
   sym_labeledStatementTr; sym__statementTr]; STATE 13660 [sym_assignment];
   STATE 11905 [sym_varAssignDef]; STATE 13660 [sym_varDef; sym_constDef];
   STATE 1257 [sym_label]; STATE 7984 [sym__expr; sym_exprConditional]; STATE 7363 [sym__ref;
   sym_lambda; sym_inherited; sym_exprDot; sym_exprDeref; sym_exprAs; sym_exprTpl;
   sym_exprSubscript; sym_exprCall]; STATE 7984 [sym_exprBinary; sym_exprUnary];
   STATE 7363 [sym_exprParens; sym_exprBrackets; sym__literal; sym_literalString];
   STATE 6967 [sym__literalString; sym_literalChar]; STATE 7363 [sym_literalNumber];
   STATE 7660 [sym__literalInt; sym__literalFloat]; STATE 6967 [aux_sym_literalString_repeat1];
   ACTIONS 10198 [anon_sym_SEMI]; ACTIONS 9986 [anon_sym_LBRACK]; ACTIONS 9988 [anon_sym_LPAREN];
   ACTIONS 9990 [aux_sym__literalString_token1]; ACTIONS 9992 [anon_sym_POUND];
   ACTIONS 9994 [aux_sym__literalInt_token1]; ACTIONS 9996 [aux_sym__literalInt_token2;
   aux_sym__literalInt_token3]; ACTIONS 9994 [aux_sym__literalFloat_token1];
   ACTIONS 9998 [sym_kAdd; sym_kSub]; ACTIONS 10000 [sym_kAt]; ACTIONS 10002 [sym_kTrue;
   sym_kFalse]; ACTIONS 10004 [sym_labelNumber]; ACTIONS 3 [sym__space];
   ACTIONS 5 [sym_ppDirective]; ACTIONS 3 [sym_comment]; ACTIONS 10002 [sym_ppFragmentExpr];
   ACTIONS 9990 [sym__literalStringMultiline]; ACTIONS 10006 [sym_identifier];
   ACTIONS 10008 [sym_kSpecialize]; ACTIONS 10200 [sym_kAsm]; ACTIONS 10202 [sym_kBegin];
   ACTIONS 10204 [sym_kCase]; ACTIONS 10016 [sym_kConst]; ACTIONS 10606 [sym_kElse];
   ACTIONS 10208 [sym_kFor]; ACTIONS 10020 [sym_kFunction]; ACTIONS 10210 [sym_kGoto];
   ACTIONS 10212 [sym_kIf]; ACTIONS 10026 [sym_kInherited]; ACTIONS 10002 [sym_kNil];
   ACTIONS 10000 [sym_kNot]; ACTIONS 10020 [sym_kProcedure]; ACTIONS 10214 [sym_kRaise];
   ACTIONS 10216 [sym_kRepeat]; ACTIONS 10032 [sym_kString]; ACTIONS 10218 [sym_kTry];
   ACTIONS 10036 [sym_kVar]; ACTIONS 10220 [sym_kWhile]; ACTIONS 10222 [sym_kWith]].

(** State 1149. *)
Definition ts_parse_table_1149 : parse_row :=
  [STATE 6214 [sym_if]; STATE 6244 [sym_ifElse; sym_while; sym_repeat; sym_for; sym_foreach;
   sym_try; sym_case; sym_block; sym_asm; sym_with; sym_raise; sym_statement; sym_goto;
   sym_labeledStatement; sym__statement]; STATE 15916 [sym_ifTr; sym_ifElseTr; sym_whileTr;
   sym_repeatTr; sym_forTr; sym_foreachTr; sym_tryTr; sym_caseTr]; STATE 15738 [sym_blockTr];
   STATE 15916 [sym_asmTr; sym_withTr; sym_raiseTr; sym_statementTr; sym_gotoTr;
   sym_labeledStatementTr; sym__statementTr]; STATE 13660 [sym_assignment];
   STATE 11905 [sym_varAssignDef]; STATE 13660 [sym_varDef; sym_constDef];
   STATE 1257 [sym_label]; STATE 7979 [sym__expr; sym_exprConditional]; STATE 7363 [sym__ref;
   sym_lambda; sym_inherited; sym_exprDot; sym_exprDeref; sym_exprAs; sym_exprTpl;
   sym_exprSubscript; sym_exprCall]; STATE 7979 [sym_exprBinary; sym_exprUnary];
   STATE 7363 [sym_exprParens; sym_exprBrackets; sym__literal; sym_literalString];
   STATE 6967 [sym__literalString; sym_literalChar]; STATE 7363 [sym_literalNumber];
   STATE 7660 [sym__literalInt; sym__literalFloat]; STATE 6967 [aux_sym_literalString_repeat1];
   ACTIONS 10608 [anon_sym_SEMI]; ACTIONS 9986 [anon_sym_LBRACK]; ACTIONS 9988 [anon_sym_LPAREN];
   ACTIONS 9990 [aux_sym__literalString_token1]; ACTIONS 9992 [anon_sym_POUND];
   ACTIONS 9994 [aux_sym__literalInt_token1]; ACTIONS 9996 [aux_sym__literalInt_token2;
   aux_sym__literalInt_token3]; ACTIONS 9994 [aux_sym__literalFloat_token1];
   ACTIONS 9998 [sym_kAdd; sym_kSub]; ACTIONS 10000 [sym_kAt]; ACTIONS 10002 [sym_kTrue;
   sym_kFalse]; ACTIONS 10004 [sym_labelNumber]; ACTIONS 3 [sym__space];
   ACTIONS 5 [sym_ppDirective]; ACTIONS 3 [sym_comment]; ACTIONS 10002 [sym_ppFragmentExpr];
   ACTIONS 9990 [sym__literalStringMultiline]; ACTIONS 10006 [sym_identifier];
   ACTIONS 10008 [sym_kSpecialize]; ACTIONS 10200 [sym_kAsm]; ACTIONS 10202 [sym_kBegin];
   ACTIONS 10204 [sym_kCase]; ACTIONS 10016 [sym_kConst]; ACTIONS 3278 [sym_kElse];
   ACTIONS 10208 [sym_kFor]; ACTIONS 10020 [sym_kFunction]; ACTIONS 10210 [sym_kGoto];
   ACTIONS 10212 [sym_kIf]; ACTIONS 10026 [sym_kInherited]; ACTIONS 10002 [sym_kNil];
   ACTIONS 10000 [sym_kNot]; ACTIONS 10020 [sym_kProcedure]; ACTIONS 10214 [sym_kRaise];
   ACTIONS 10216 [sym_kRepeat]; ACTIONS 10032 [sym_kString]; ACTIONS 10218 [sym_kTry];
   ACTIONS 10036 [sym_kVar]; ACTIONS 10220 [sym_kWhile]; ACTIONS 10222 [sym_kWith]].

(** State 1150. *)
Definition ts_parse_table_1150 : parse_row :=
  [STATE 6214 [sym_if]; STATE 6343 [sym_ifElse; sym_while; sym_repeat; sym_for; sym_foreach;
   sym_try; sym_case; sym_block; sym_asm; sym_with; sym_raise; sym_statement; sym_goto;
   sym_labeledStatement; sym__statement]; STATE 15171 [sym_ifTr; sym_ifElseTr; sym_whileTr;
   sym_repeatTr; sym_forTr; sym_foreachTr; sym_tryTr; sym_caseTr]; STATE 15738 [sym_blockTr];
   STATE 15171 [sym_asmTr; sym_withTr; sym_raiseTr; sym_statementTr; sym_gotoTr;
   sym_labeledStatementTr; sym__statementTr]; STATE 13660 [sym_assignment];
   STATE 11905 [sym_varAssignDef]; STATE 13660 [sym_varDef; sym_constDef];
   STATE 1257 [sym_label]; STATE 7979 [sym__expr; sym_exprConditional]; STATE 7363 [sym__ref;
   sym_lambda; sym_inherited; sym_exprDot; sym_exprDeref; sym_exprAs; sym_exprTpl;
   sym_exprSubscript; sym_exprCall]; STATE 7979 [sym_exprBinary; sym_exprUnary];
   STATE 7363 [sym_exprParens; sym_exprBrackets; sym__literal; sym_literalString];
   STATE 6967 [sym__literalString; sym_literalChar]; STATE 7363 [sym_literalNumber];
   STATE 7660 [sym__literalInt; sym__literalFloat]; STATE 6967 [aux_sym_literalString_repeat1];
   ACTIONS 10610 [anon_sym_SEMI]; ACTIONS 9986 [anon_sym_LBRACK]; ACTIONS 9988 [anon_sym_LPAREN];
   ACTIONS 9990 [aux_sym__literalString_token1]; ACTIONS 9992 [anon_sym_POUND];
   ACTIONS 9994 [aux_sym__literalInt_token1]; ACTIONS 9996 [aux_sym__literalInt_token2;
   aux_sym__literalInt_token3]; ACTIONS 9994 [aux_sym__literalFloat_token1];
   ACTIONS 9998 [sym_kAdd; sym_kSub]; ACTIONS 10000 [sym_kAt]; ACTIONS 10002 [sym_kTrue;
   sym_kFalse]; ACTIONS 10004 [sym_labelNumber]; ACTIONS 3 [sym__space];
   ACTIONS 5 [sym_ppDirective]; ACTIONS 3 [sym_comment]; ACTIONS 10002 [sym_ppFragmentExpr];
   ACTIONS 9990 [sym__literalStringMultiline]; ACTIONS 10006 [sym_identifier];
   ACTIONS 10008 [sym_kSpecialize]; ACTIONS 10200 [sym_kAsm]; ACTIONS 10202 [sym_kBegin];
   ACTIONS 10204 [sym_kCase]; ACTIONS 10016 [sym_kConst]; ACTIONS 3282 [sym_kElse];
   ACTIONS 10208 [sym_kFor]; ACTIONS 10020 [sym_kFunction]; ACTIONS 10210 [sym_kGoto];
   ACTIONS 10212 [sym_kIf]; ACTIONS 10026 [sym_kInherited]; ACTIONS 10002 [sym_kNil];
   ACTIONS 10000 [sym_kNot]; ACTIONS 10020 [sym_kProcedure]; ACTIONS 10214 [sym_kRaise];
   ACTIONS 10216 [sym_kRepeat]; ACTIONS 10032 [sym_kString]; ACTIONS 10218 [sym_kTry];
   ACTIONS 10036 [sym_kVar]; ACTIONS 10220 [sym_kWhile]; ACTIONS 10222 [sym_kWith]].

(** State 1151. *)
Definition ts_parse_table_1151 : parse_row :=
  [STATE 6061 [sym_if]; STATE 6133 [sym_ifElse; sym_while; sym_repeat; sym_for; sym_foreach;
   sym_try; sym_case; sym_block; sym_asm; sym_with; sym_raise; sym_statement; sym_goto;
   sym__statement]; STATE 13024 [sym_ifTr; sym_ifElseTr; sym_whileTr; sym_repeatTr; sym_forTr;
   sym_foreachTr; sym_tryTr; sym_caseTr]; STATE 13949 [sym_blockTr]; STATE 13024 [sym_asmTr;
   sym_withTr; sym_raiseTr; sym_statementTr; sym_gotoTr; sym__statementTr];
   STATE 12950 [sym_assignment]; STATE 11871 [sym_varAssignDef]; STATE 12950 [sym_varDef;
   sym_constDef]; STATE 6117 [sym_label]; STATE 7879 [sym__expr; sym_exprConditional];
   STATE 7259 [sym__ref; sym_lambda; sym_inherited; sym_exprDot; sym_exprDeref; sym_exprAs;
   sym_exprTpl; sym_exprSubscript; sym_exprCall]; STATE 7879 [sym_exprBinary; sym_exprUnary];
   STATE 7259 [sym_exprParens; sym_exprBrackets; sym__literal; sym_literalString];
   STATE 6541 [sym__literalString; sym_literalChar]; STATE 7259 [sym_literalNumber];
   STATE 7426 [sym__literalInt; sym__literalFloat];
   STATE 6117 [aux_sym_labeledStatement_repeat1]; STATE 6541 [aux_sym_literalString_repeat1];
   ACTIONS 9872 [anon_sym_SEMI]; ACTIONS 673 [anon_sym_LBRACK]; ACTIONS 675 [anon_sym_LPAREN];
   ACTIONS 677 [aux_sym__literalString_token1]; ACTIONS 679 [anon_sym_POUND];
   ACTIONS 681 [aux_sym__literalInt_token1]; ACTIONS 683 [aux_sym__literalInt_token2;
   aux_sym__literalInt_token3]; ACTIONS 681 [aux_sym__literalFloat_token1];
   ACTIONS 685 [sym_kAdd; sym_kSub]; ACTIONS 687 [sym_kAt]; ACTIONS 689 [sym_kTrue; sym_kFalse];
   ACTIONS 9862 [sym_labelNumber]; ACTIONS 3 [sym__space]; ACTIONS 5 [sym_ppDirective];
   ACTIONS 3 [sym_comment]; ACTIONS 689 [sym_ppFragmentExpr];
   ACTIONS 677 [sym__literalStringMultiline]; ACTIONS 9864 [sym_identifier];
   ACTIONS 695 [sym_kSpecialize]; ACTIONS 697 [sym_kAsm]; ACTIONS 699 [sym_kBegin];
   ACTIONS 701 [sym_kCase]; ACTIONS 703 [sym_kConst]; ACTIONS 4439 [sym_kExcept; sym_kFinally];
   ACTIONS 709 [sym_kFor]; ACTIONS 711 [sym_kFunction]; ACTIONS 713 [sym_kGoto];
   ACTIONS 715 [sym_kIf]; ACTIONS 717 [sym_kInherited]; ACTIONS 689 [sym_kNil];
   ACTIONS 687 [sym_kNot]; ACTIONS 711 [sym_kProcedure]; ACTIONS 719 [sym_kRaise];
   ACTIONS 721 [sym_kRepeat]; ACTIONS 723 [sym_kString]; ACTIONS 725 [sym_kTry];
   ACTIONS 727 [sym_kVar]; ACTIONS 729 [sym_kWhile]; ACTIONS 731 [sym_kWith]].

(** State 1152. *)
Definition ts_parse_table_1152 : parse_row :=
  [STATE 6360 [sym_if]; STATE 6604 [sym_ifElse; sym_while; sym_repeat; sym_for; sym_foreach;
   sym_try; sym_case; sym_block; sym_asm; sym_with; sym_raise; sym_statement; sym_goto;
   sym_labeledStatement; sym__statement]; STATE 14209 [sym_ifTr; sym_ifElseTr; sym_whileTr;
   sym_repeatTr; sym_forTr; sym_foreachTr; sym_tryTr; sym_caseTr]; STATE 15738 [sym_blockTr];
   STATE 14209 [sym_asmTr; sym_withTr; sym_raiseTr; sym_statementTr; sym_gotoTr;
   sym_labeledStatementTr; sym__statementTr]; STATE 14065 [sym_assignment];
   STATE 11905 [sym_varAssignDef]; STATE 14065 [sym_varDef; sym_constDef];
   STATE 1211 [sym_label]; STATE 8044 [sym__expr; sym_exprConditional]; STATE 7363 [sym__ref;
   sym_lambda; sym_inherited; sym_exprDot; sym_exprDeref; sym_exprAs; sym_exprTpl;
   sym_exprSubscript; sym_exprCall]; STATE 8044 [sym_exprBinary; sym_exprUnary];
   STATE 7363 [sym_exprParens; sym_exprBrackets; sym__literal; sym_literalString];
   STATE 6967 [sym__literalString; sym_literalChar]; STATE 7363 [sym_literalNumber];
   STATE 7660 [sym__literalInt; sym__literalFloat]; STATE 6967 [aux_sym_literalString_repeat1];
   ACTIONS 10090 [anon_sym_SEMI]; ACTIONS 9986 [anon_sym_LBRACK]; ACTIONS 9988 [anon_sym_LPAREN];
   ACTIONS 9990 [aux_sym__literalString_token1]; ACTIONS 9992 [anon_sym_POUND];
   ACTIONS 9994 [aux_sym__literalInt_token1]; ACTIONS 9996 [aux_sym__literalInt_token2;
   aux_sym__literalInt_token3]; ACTIONS 9994 [aux_sym__literalFloat_token1];
   ACTIONS 9998 [sym_kAdd; sym_kSub]; ACTIONS 10000 [sym_kAt]; ACTIONS 10002 [sym_kTrue;
   sym_kFalse]; ACTIONS 10004 [sym_labelNumber]; ACTIONS 3 [sym__space];
   ACTIONS 5 [sym_ppDirective]; ACTIONS 3 [sym_comment]; ACTIONS 10002 [sym_ppFragmentExpr];
   ACTIONS 9990 [sym__literalStringMultiline]; ACTIONS 10006 [sym_identifier];
   ACTIONS 10008 [sym_kSpecialize]; ACTIONS 10068 [sym_kAsm]; ACTIONS 10070 [sym_kBegin];
   ACTIONS 10072 [sym_kCase]; ACTIONS 10016 [sym_kConst]; ACTIONS 10612 [sym_kElse];
   ACTIONS 10074 [sym_kFor]; ACTIONS 10020 [sym_kFunction]; ACTIONS 10076 [sym_kGoto];
   ACTIONS 10094 [sym_kIf]; ACTIONS 10026 [sym_kInherited]; ACTIONS 10002 [sym_kNil];
   ACTIONS 10000 [sym_kNot]; ACTIONS 10020 [sym_kProcedure]; ACTIONS 10080 [sym_kRaise];
   ACTIONS 10082 [sym_kRepeat]; ACTIONS 10032 [sym_kString]; ACTIONS 10084 [sym_kTry];
   ACTIONS 10036 [sym_kVar]; ACTIONS 10086 [sym_kWhile]; ACTIONS 10088 [sym_kWith]].

(** State 1153. *)
Definition ts_parse_table_1153 : parse_row :=
  [ACTIONS 10614 [anon_sym_SEMI; anon_sym_COMMA; anon_sym_LBRACK];
   ACTIONS 10616 [anon_sym_LPAREN]; ACTIONS 10614 [aux_sym__literalString_token1;
   anon_sym_POUND]; ACTIONS 10616 [aux_sym__literalInt_token1];
   ACTIONS 10614 [aux_sym__literalInt_token2; aux_sym__literalInt_token3];
   ACTIONS 10616 [aux_sym__literalFloat_token1]; ACTIONS 10614 [aux_sym_ppUsesBlock_token1;
   aux_sym_ppUsesBlock_token2; aux_sym_ppUsesBlock_token3]; ACTIONS 10616 [sym_kAdd; sym_kSub];
   ACTIONS 10614 [sym_kAt; sym_kTrue; sym_kFalse]; ACTIONS 3 [sym__space];
   ACTIONS 5 [sym_ppDirective]; ACTIONS 3 [sym_comment]; ACTIONS 10614 [sym_ppFragmentExpr;
   sym__literalStringMultiline; sym_identifier; sym_kDefault; sym_kNodefault; sym_kDispId;
   sym_kGeneric; sym_kSpecialize; sym_kOperator; sym_kPublic; sym_kStatic; sym_kVirtual;
   sym_kAbstract; sym_kDynamic; sym_kOverride; sym_kOverload; sym_kReintroduce; sym_kStdcall;
   sym_kCdecl; sym_kCppdecl; sym_kPascal; sym_kRegister; sym_kMwpascal; sym_kExternal;
   sym_kMessage; sym_kDeprecated; sym_kExperimental; sym_kPlatform; sym_kUnimplemented;
   sym_kCvar; sym_kExport; sym_kFar; sym_kNear; sym_kSafecall; sym_kAssembler; sym_kNostackframe;
   sym_kInterrupt; sym_kNoreturn; sym_kIocheck; sym_kLocal; sym_kHardfloat; sym_kSoftfloat;
   sym_kMs_abi_default; sym_kMs_abi_cdecl; sym_kSaveregisters; sym_kSysv_abi_default;
   sym_kSysv_abi_cdecl; sym_kVectorcall; sym_kVarargs; sym_kWinapi; sym_kAlias; sym_kAsm;
   sym_kBegin; sym_kCase; sym_kClass; sym_kConst; sym_kConstructor; sym_kDestructor;
   sym_kExports; sym_kFor; sym_kFunction; sym_kGoto; sym_kIf; sym_kInherited; sym_kInline;
   sym_kLabel; sym_kNil; sym_kNot; sym_kProcedure; sym_kProperty; sym_kRaise; sym_kRepeat;
   sym_kResourcestring; sym_kString; sym_kThreadvar; sym_kTry; sym_kType; sym_kUses; sym_kVar;
   sym_kWhile; sym_kWith]].

(** State 1154. *)
Definition ts_parse_table_1154 : parse_row :=
  [STATE 5851 [sym_if]; STATE 5947 [sym_ifElse; sym_while; sym_repeat; sym_for; sym_foreach;
   sym_try; sym_case; sym_block; sym_asm; sym_with; sym_raise; sym_statement; sym_goto;
   sym_labeledStatement; sym__statement]; STATE 15057 [sym_ifTr; sym_ifElseTr; sym_whileTr;
   sym_repeatTr; sym_forTr; sym_foreachTr; sym_tryTr; sym_caseTr]; STATE 15738 [sym_blockTr];
   STATE 15057 [sym_asmTr; sym_withTr; sym_raiseTr; sym_statementTr; sym_gotoTr;
   sym_labeledStatementTr; sym__statementTr]; STATE 13130 [sym_assignment];
   STATE 11905 [sym_varAssignDef]; STATE 13130 [sym_varDef; sym_constDef];
   STATE 1274 [sym_label]; STATE 8061 [sym__expr; sym_exprConditional]; STATE 7363 [sym__ref;
   sym_lambda; sym_inherited; sym_exprDot; sym_exprDeref; sym_exprAs; sym_exprTpl;
   sym_exprSubscript; sym_exprCall]; STATE 8061 [sym_exprBinary; sym_exprUnary];
   STATE 7363 [sym_exprParens; sym_exprBrackets; sym__literal; sym_literalString];
   STATE 6967 [sym__literalString; sym_literalChar]; STATE 7363 [sym_literalNumber];
   STATE 7660 [sym__literalInt; sym__literalFloat]; STATE 6967 [aux_sym_literalString_repeat1];
   ACTIONS 10492 [anon_sym_SEMI]; ACTIONS 9986 [anon_sym_LBRACK]; ACTIONS 9988 [anon_sym_LPAREN];
   ACTIONS 9990 [aux_sym__literalString_token1]; ACTIONS 9992 [anon_sym_POUND];
   ACTIONS 9994 [aux_sym__literalInt_token1]; ACTIONS 9996 [aux_sym__literalInt_token2;
   aux_sym__literalInt_token3]; ACTIONS 9994 [aux_sym__literalFloat_token1];
   ACTIONS 9998 [sym_kAdd; sym_kSub]; ACTIONS 10000 [sym_kAt]; ACTIONS 10002 [sym_kTrue;
   sym_kFalse]; ACTIONS 10004 [sym_labelNumber]; ACTIONS 3 [sym__space];
   ACTIONS 5 [sym_ppDirective]; ACTIONS 3 [sym_comment]; ACTIONS 10002 [sym_ppFragmentExpr];
   ACTIONS 9990 [sym__literalStringMultiline]; ACTIONS 10006 [sym_identifier];
   ACTIONS 10008 [sym_kSpecialize]; ACTIONS 10494 [sym_kAsm]; ACTIONS 10496 [sym_kBegin];
   ACTIONS 10498 [sym_kCase]; ACTIONS 10016 [sym_kConst]; ACTIONS 10564 [sym_kElse];
   ACTIONS 10502 [sym_kFor]; ACTIONS 10020 [sym_kFunction]; ACTIONS 10504 [sym_kGoto];
   ACTIONS 10506 [sym_kIf]; ACTIONS 10026 [sym_kInherited]; ACTIONS 10002 [sym_kNil];
   ACTIONS 10000 [sym_kNot]; ACTIONS 10020 [sym_kProcedure]; ACTIONS 10508 [sym_kRaise];
   ACTIONS 10510 [sym_kRepeat]; ACTIONS 10032 [sym_kString]; ACTIONS 10512 [sym_kTry];
   ACTIONS 10036 [sym_kVar]; ACTIONS 10514 [sym_kWhile]; ACTIONS 10516 [sym_kWith]].

(** State 1155. *)
Definition ts_parse_table_1155 : parse_row :=
  [STATE 6214 [sym_if]; STATE 6263 [sym_ifElse; sym_while; sym_repeat; sym_for; sym_foreach;
   sym_try; sym_case; sym_block; sym_asm; sym_with; sym_raise; sym_statement; sym_goto];
   STATE 6262 [sym_labeledStatement]; STATE 6263 [sym__statement]; STATE 14171 [sym_ifTr;
   sym_ifElseTr; sym_whileTr; sym_repeatTr; sym_forTr; sym_foreachTr; sym_tryTr; sym_caseTr];
   STATE 15738 [sym_blockTr]; STATE 14171 [sym_asmTr; sym_withTr; sym_raiseTr; sym_statementTr;
   sym_gotoTr]; STATE 14168 [sym_labeledStatementTr]; STATE 14171 [sym__statementTr];
   STATE 13660 [sym_assignment]; STATE 11905 [sym_varAssignDef]; STATE 13660 [sym_varDef;
   sym_constDef]; STATE 1257 [sym_label]; STATE 7979 [sym__expr; sym_exprConditional];
   STATE 7363 [sym__ref; sym_lambda; sym_inherited; sym_exprDot; sym_exprDeref; sym_exprAs;
   sym_exprTpl; sym_exprSubscript; sym_exprCall]; STATE 7979 [sym_exprBinary; sym_exprUnary];
   STATE 7363 [sym_exprParens; sym_exprBrackets; sym__literal; sym_literalString];
   STATE 6967 [sym__literalString; sym_literalChar]; STATE 7363 [sym_literalNumber];
   STATE 7660 [sym__literalInt; sym__literalFloat]; STATE 6967 [aux_sym_literalString_repeat1];
   ACTIONS 10618 [anon_sym_SEMI]; ACTIONS 9986 [anon_sym_LBRACK]; ACTIONS 9988 [anon_sym_LPAREN];
   ACTIONS 9990 [aux_sym__literalString_token1]; ACTIONS 9992 [anon_sym_POUND];
   ACTIONS 9994 [aux_sym__literalInt_token1]; ACTIONS 9996 [aux_sym__literalInt_token2;
   aux_sym__literalInt_token3]; ACTIONS 9994 [aux_sym__literalFloat_token1];
   ACTIONS 9998 [sym_kAdd; sym_kSub]; ACTIONS 10000 [sym_kAt]; ACTIONS 10002 [sym_kTrue;
   sym_kFalse]; ACTIONS 10004 [sym_labelNumber]; ACTIONS 3 [sym__space];
   ACTIONS 5 [sym_ppDirective]; ACTIONS 3 [sym_comment]; ACTIONS 10002 [sym_ppFragmentExpr];
   ACTIONS 9990 [sym__literalStringMultiline]; ACTIONS 10006 [sym_identifier];
   ACTIONS 10008 [sym_kSpecialize]; ACTIONS 10200 [sym_kAsm]; ACTIONS 10202 [sym_kBegin];
   ACTIONS 10204 [sym_kCase]; ACTIONS 10016 [sym_kConst]; ACTIONS 3286 [sym_kElse];
   ACTIONS 10208 [sym_kFor]; ACTIONS 10020 [sym_kFunction]; ACTIONS 10210 [sym_kGoto];
   ACTIONS 10212 [sym_kIf]; ACTIONS 10026 [sym_kInherited]; ACTIONS 10002 [sym_kNil];
   ACTIONS 10000 [sym_kNot]; ACTIONS 10020 [sym_kProcedure]; ACTIONS 10214 [sym_kRaise];
   ACTIONS 10216 [sym_kRepeat]; ACTIONS 10032 [sym_kString]; ACTIONS 10218 [sym_kTry];
   ACTIONS 10036 [sym_kVar]; ACTIONS 10220 [sym_kWhile]; ACTIONS 10222 [sym_kWith]].

(** State 1156. *)
Definition ts_parse_table_1156 : parse_row :=
  [STATE 6214 [sym_if]; STATE 6266 [sym_ifElse; sym_while; sym_repeat; sym_for; sym_foreach;
   sym_try; sym_case; sym_block; sym_asm; sym_with; sym_raise; sym_statement; sym_goto;
   sym_labeledStatement; sym__statement]; STATE 15904 [sym_ifTr; sym_ifElseTr; sym_whileTr;
   sym_repeatTr; sym_forTr; sym_foreachTr; sym_tryTr; sym_caseTr]; STATE 15738 [sym_blockTr];
   STATE 15904 [sym_asmTr; sym_withTr; sym_raiseTr; sym_statementTr; sym_gotoTr;
   sym_labeledStatementTr; sym__statementTr]; STATE 13660 [sym_assignment];
   STATE 11905 [sym_varAssignDef]; STATE 13660 [sym_varDef; sym_constDef];
   STATE 1257 [sym_label]; STATE 7979 [sym__expr; sym_exprConditional]; STATE 7363 [sym__ref;
   sym_lambda; sym_inherited; sym_exprDot; sym_exprDeref; sym_exprAs; sym_exprTpl;
   sym_exprSubscript; sym_exprCall]; STATE 7979 [sym_exprBinary; sym_exprUnary];
   STATE 7363 [sym_exprParens; sym_exprBrackets; sym__literal; sym_literalString];
   STATE 6967 [sym__literalString; sym_literalChar]; STATE 7363 [sym_literalNumber];
   STATE 7660 [sym__literalInt; sym__literalFloat]; STATE 6967 [aux_sym_literalString_repeat1];
   ACTIONS 10620 [anon_sym_SEMI]; ACTIONS 9986 [anon_sym_LBRACK]; ACTIONS 9988 [anon_sym_LPAREN];
   ACTIONS 9990 [aux_sym__literalString_token1]; ACTIONS 9992 [anon_sym_POUND];
   ACTIONS 9994 [aux_sym__literalInt_token1]; ACTIONS 9996 [aux_sym__literalInt_token2;
   aux_sym__literalInt_token3]; ACTIONS 9994 [aux_sym__literalFloat_token1];
   ACTIONS 9998 [sym_kAdd; sym_kSub]; ACTIONS 10000 [sym_kAt]; ACTIONS 10002 [sym_kTrue;
   sym_kFalse]; ACTIONS 10004 [sym_labelNumber]; ACTIONS 3 [sym__space];
   ACTIONS 5 [sym_ppDirective]; ACTIONS 3 [sym_comment]; ACTIONS 10002 [sym_ppFragmentExpr];
   ACTIONS 9990 [sym__literalStringMultiline]; ACTIONS 10006 [sym_identifier];
   ACTIONS 10008 [sym_kSpecialize]; ACTIONS 10200 [sym_kAsm]; ACTIONS 10202 [sym_kBegin];
   ACTIONS 10204 [sym_kCase]; ACTIONS 10016 [sym_kConst]; ACTIONS 3290 [sym_kElse];
   ACTIONS 10208 [sym_kFor]; ACTIONS 10020 [sym_kFunction]; ACTIONS 10210 [sym_kGoto];
   ACTIONS 10212 [sym_kIf]; ACTIONS 10026 [sym_kInherited]; ACTIONS 10002 [sym_kNil];
   ACTIONS 10000 [sym_kNot]; ACTIONS 10020 [sym_kProcedure]; ACTIONS 10214 [sym_kRaise];
   ACTIONS 10216 [sym_kRepeat]; ACTIONS 10032 [sym_kString]; ACTIONS 10218 [sym_kTry];
   ACTIONS 10036 [sym_kVar]; ACTIONS 10220 [sym_kWhile]; ACTIONS 10222 [sym_kWith]].

(** State 1157. *)
Definition ts_parse_table_1157 : parse_row :=
  [ACTIONS 10622 [anon_sym_SEMI; anon_sym_COMMA; anon_sym_LBRACK];
   ACTIONS 10624 [anon_sym_LPAREN]; ACTIONS 10622 [aux_sym__literalString_token1;
   anon_sym_POUND]; ACTIONS 10624 [aux_sym__literalInt_token1];
   ACTIONS 10622 [aux_sym__literalInt_token2; aux_sym__literalInt_token3];
   ACTIONS 10624 [aux_sym__literalFloat_token1]; ACTIONS 10622 [aux_sym_ppUsesBlock_token1;
   aux_sym_ppUsesBlock_token2; aux_sym_ppUsesBlock_token3]; ACTIONS 10624 [sym_kAdd; sym_kSub];
   ACTIONS 10622 [sym_kAt; sym_kTrue; sym_kFalse]; ACTIONS 3 [sym__space];
   ACTIONS 5 [sym_ppDirective]; ACTIONS 3 [sym_comment]; ACTIONS 10622 [sym_ppFragmentExpr;
   sym__literalStringMultiline; sym_identifier; sym_kDefault; sym_kNodefault; sym_kDispId;
   sym_kGeneric; sym_kSpecialize; sym_kOperator; sym_kPublic; sym_kStatic; sym_kVirtual;
   sym_kAbstract; sym_kDynamic; sym_kOverride; sym_kOverload; sym_kReintroduce; sym_kStdcall;
   sym_kCdecl; sym_kCppdecl; sym_kPascal; sym_kRegister; sym_kMwpascal; sym_kExternal;
   sym_kMessage; sym_kDeprecated; sym_kExperimental; sym_kPlatform; sym_kUnimplemented;
   sym_kCvar; sym_kExport; sym_kFar; sym_kNear; sym_kSafecall; sym_kAssembler; sym_kNostackframe;
   sym_kInterrupt; sym_kNoreturn; sym_kIocheck; sym_kLocal; sym_kHardfloat; sym_kSoftfloat;
   sym_kMs_abi_default; sym_kMs_abi_cdecl; sym_kSaveregisters; sym_kSysv_abi_default;
   sym_kSysv_abi_cdecl; sym_kVectorcall; sym_kVarargs; sym_kWinapi; sym_kAlias; sym_kAsm;
   sym_kBegin; sym_kCase; sym_kClass; sym_kConst; sym_kConstructor; sym_kDestructor;
   sym_kExports; sym_kFor; sym_kFunction; sym_kGoto; sym_kIf; sym_kInherited; sym_kInline;
   sym_kLabel; sym_kNil; sym_kNot; sym_kProcedure; sym_kProperty; sym_kRaise; sym_kRepeat;
   sym_kResourcestring; sym_kString; sym_kThreadvar; sym_kTry; sym_kType; sym_kUses; sym_kVar;
   sym_kWhile; sym_kWith]].

(** State 1158. *)
Definition ts_parse_table_1158 : parse_row :=
  [STATE 6214 [sym_if]; STATE 6267 [sym_ifElse; sym_while; sym_repeat; sym_for; sym_foreach;
   sym_try; sym_case; sym_block; sym_asm; sym_with; sym_raise; sym_statement; sym_goto;
   sym_labeledStatement; sym__statement]; STATE 15932 [sym_ifTr; sym_ifElseTr; sym_whileTr;
   sym_repeatTr; sym_forTr; sym_foreachTr; sym_tryTr; sym_caseTr]; STATE 15738 [sym_blockTr];
   STATE 15932 [sym_asmTr; sym_withTr; sym_raiseTr; sym_statementTr; sym_gotoTr;
   sym_labeledStatementTr; sym__statementTr]; STATE 13660 [sym_assignment];
   STATE 11905 [sym_varAssignDef]; STATE 13660 [sym_varDef; sym_constDef];
   STATE 1257 [sym_label]; STATE 7979 [sym__expr; sym_exprConditional]; STATE 7363 [sym__ref;
   sym_lambda; sym_inherited; sym_exprDot; sym_exprDeref; sym_exprAs; sym_exprTpl;
   sym_exprSubscript; sym_exprCall]; STATE 7979 [sym_exprBinary; sym_exprUnary];
   STATE 7363 [sym_exprParens; sym_exprBrackets; sym__literal; sym_literalString];
   STATE 6967 [sym__literalString; sym_literalChar]; STATE 7363 [sym_literalNumber];
   STATE 7660 [sym__literalInt; sym__literalFloat]; STATE 6967 [aux_sym_literalString_repeat1];
   ACTIONS 10626 [anon_sym_SEMI]; ACTIONS 9986 [anon_sym_LBRACK]; ACTIONS 9988 [anon_sym_LPAREN];
   ACTIONS 9990 [aux_sym__literalString_token1]; ACTIONS 9992 [anon_sym_POUND];
   ACTIONS 9994 [aux_sym__literalInt_token1]; ACTIONS 9996 [aux_sym__literalInt_token2;
   aux_sym__literalInt_token3]; ACTIONS 9994 [aux_sym__literalFloat_token1];
   ACTIONS 9998 [sym_kAdd; sym_kSub]; ACTIONS 10000 [sym_kAt]; ACTIONS 10002 [sym_kTrue;
   sym_kFalse]; ACTIONS 10004 [sym_labelNumber]; ACTIONS 3 [sym__space];
   ACTIONS 5 [sym_ppDirective]; ACTIONS 3 [sym_comment]; ACTIONS 10002 [sym_ppFragmentExpr];
   ACTIONS 9990 [sym__literalStringMultiline]; ACTIONS 10006 [sym_identifier];
   ACTIONS 10008 [sym_kSpecialize]; ACTIONS 10200 [sym_kAsm]; ACTIONS 10202 [sym_kBegin];
   ACTIONS 10204 [sym_kCase]; ACTIONS 10016 [sym_kConst]; ACTIONS 3296 [sym_kElse];
   ACTIONS 10208 [sym_kFor]; ACTIONS 10020 [sym_kFunction]; ACTIONS 10210 [sym_kGoto];
   ACTIONS 10212 [sym_kIf]; ACTIONS 10026 [sym_kInherited]; ACTIONS 10002 [sym_kNil];
   ACTIONS 10000 [sym_kNot]; ACTIONS 10020 [sym_kProcedure]; ACTIONS 10214 [sym_kRaise];
   ACTIONS 10216 [sym_kRepeat]; ACTIONS 10032 [sym_kString]; ACTIONS 10218 [sym_kTry];
   ACTIONS 10036 [sym_kVar]; ACTIONS 10220 [sym_kWhile]; ACTIONS 10222 [sym_kWith]].

(** State 1159. *)
Definition ts_parse_table_1159 : parse_row :=
  [STATE 6214 [sym_if]; STATE 6269 [sym_ifElse; sym_while; sym_repeat; sym_for; sym_foreach;
   sym_try; sym_case; sym_block; sym_asm; sym_with; sym_raise; sym_statement; sym_goto;
   sym_labeledStatement; sym__statement]; STATE 15995 [sym_ifTr; sym_ifElseTr; sym_whileTr;
   sym_repeatTr; sym_forTr; sym_foreachTr; sym_tryTr; sym_caseTr]; STATE 15738 [sym_blockTr];
   STATE 15995 [sym_asmTr; sym_withTr; sym_raiseTr; sym_statementTr; sym_gotoTr;
   sym_labeledStatementTr; sym__statementTr]; STATE 13660 [sym_assignment];
   STATE 11905 [sym_varAssignDef]; STATE 13660 [sym_varDef; sym_constDef];
   STATE 1257 [sym_label]; STATE 7979 [sym__expr; sym_exprConditional]; STATE 7363 [sym__ref;
   sym_lambda; sym_inherited; sym_exprDot; sym_exprDeref; sym_exprAs; sym_exprTpl;
   sym_exprSubscript; sym_exprCall]; STATE 7979 [sym_exprBinary; sym_exprUnary];
   STATE 7363 [sym_exprParens; sym_exprBrackets; sym__literal; sym_literalString];
   STATE 6967 [sym__literalString; sym_literalChar]; STATE 7363 [sym_literalNumber];
   STATE 7660 [sym__literalInt; sym__literalFloat]; STATE 6967 [aux_sym_literalString_repeat1];
   ACTIONS 10628 [anon_sym_SEMI]; ACTIONS 9986 [anon_sym_LBRACK]; ACTIONS 9988 [anon_sym_LPAREN];
   ACTIONS 9990 [aux_sym__literalString_token1]; ACTIONS 9992 [anon_sym_POUND];
   ACTIONS 9994 [aux_sym__literalInt_token1]; ACTIONS 9996 [aux_sym__literalInt_token2;
   aux_sym__literalInt_token3]; ACTIONS 9994 [aux_sym__literalFloat_token1];
   ACTIONS 9998 [sym_kAdd; sym_kSub]; ACTIONS 10000 [sym_kAt]; ACTIONS 10002 [sym_kTrue;
   sym_kFalse]; ACTIONS 10004 [sym_labelNumber]; ACTIONS 3 [sym__space];
   ACTIONS 5 [sym_ppDirective]; ACTIONS 3 [sym_comment]; ACTIONS 10002 [sym_ppFragmentExpr];
   ACTIONS 9990 [sym__literalStringMultiline]; ACTIONS 10006 [sym_identifier];
   ACTIONS 10008 [sym_kSpecialize]; ACTIONS 10200 [sym_kAsm]; ACTIONS 10202 [sym_kBegin];
   ACTIONS 10204 [sym_kCase]; ACTIONS 10016 [sym_kConst]; ACTIONS 3304 [sym_kElse];
   ACTIONS 10208 [sym_kFor]; ACTIONS 10020 [sym_kFunction]; ACTIONS 10210 [sym_kGoto];
   ACTIONS 10212 [sym_kIf]; ACTIONS 10026 [sym_kInherited]; ACTIONS 10002 [sym_kNil];
   ACTIONS 10000 [sym_kNot]; ACTIONS 10020 [sym_kProcedure]; ACTIONS 10214 [sym_kRaise];
   ACTIONS 10216 [sym_kRepeat]; ACTIONS 10032 [sym_kString]; ACTIONS 10218 [sym_kTry];
   ACTIONS 10036 [sym_kVar]; ACTIONS 10220 [sym_kWhile]; ACTIONS 10222 [sym_kWith]].

(** State 1160. *)
Definition ts_parse_table_1160 : parse_row :=
  [ACTIONS 10630 [anon_sym_SEMI; anon_sym_COMMA; anon_sym_LBRACK];
   ACTIONS 10632 [anon_sym_LPAREN]; ACTIONS 10630 [aux_sym__literalString_token1;
   anon_sym_POUND]; ACTIONS 10632 [aux_sym__literalInt_token1];
   ACTIONS 10630 [aux_sym__literalInt_token2; aux_sym__literalInt_token3];
   ACTIONS 10632 [aux_sym__literalFloat_token1]; ACTIONS 10630 [aux_sym_ppUsesBlock_token1;
   aux_sym_ppUsesBlock_token2; aux_sym_ppUsesBlock_token3]; ACTIONS 10632 [sym_kAdd; sym_kSub];
   ACTIONS 10630 [sym_kAt; sym_kTrue; sym_kFalse]; ACTIONS 3 [sym__space];
   ACTIONS 5 [sym_ppDirective]; ACTIONS 3 [sym_comment]; ACTIONS 10630 [sym_ppFragmentExpr;
   sym__literalStringMultiline; sym_identifier; sym_kDefault; sym_kNodefault; sym_kDispId;
   sym_kGeneric; sym_kSpecialize; sym_kOperator; sym_kPublic; sym_kStatic; sym_kVirtual;
   sym_kAbstract; sym_kDynamic; sym_kOverride; sym_kOverload; sym_kReintroduce; sym_kStdcall;
   sym_kCdecl; sym_kCppdecl; sym_kPascal; sym_kRegister; sym_kMwpascal; sym_kExternal;
   sym_kMessage; sym_kDeprecated; sym_kExperimental; sym_kPlatform; sym_kUnimplemented;
   sym_kCvar; sym_kExport; sym_kFar; sym_kNear; sym_kSafecall; sym_kAssembler; sym_kNostackframe;
   sym_kInterrupt; sym_kNoreturn; sym_kIocheck; sym_kLocal; sym_kHardfloat; sym_kSoftfloat;
   sym_kMs_abi_default; sym_kMs_abi_cdecl; sym_kSaveregisters; sym_kSysv_abi_default;
   sym_kSysv_abi_cdecl; sym_kVectorcall; sym_kVarargs; sym_kWinapi; sym_kAlias; sym_kAsm;
   sym_kBegin; sym_kCase; sym_kClass; sym_kConst; sym_kConstructor; sym_kDestructor;
   sym_kExports; sym_kFor; sym_kFunction; sym_kGoto; sym_kIf; sym_kInherited; sym_kInline;
   sym_kLabel; sym_kNil; sym_kNot; sym_kProcedure; sym_kProperty; sym_kRaise; sym_kRepeat;
   sym_kResourcestring; sym_kString; sym_kThreadvar; sym_kTry; sym_kType; sym_kUses; sym_kVar;
   sym_kWhile; sym_kWith]].

(** State 1161. *)
Definition ts_parse_table_1161 : parse_row :=
  [STATE 9071 [sym_if]; STATE 9067 [sym_ifElse; sym_while; sym_repeat; sym_for; sym_foreach;
   sym_try; sym_case; sym_block; sym_asm; sym_with; sym_raise; sym_statement; sym_goto;
   sym_labeledStatement; sym__statement]; STATE 15874 [sym_ifTr; sym_ifElseTr; sym_whileTr;
   sym_repeatTr; sym_forTr; sym_foreachTr; sym_tryTr; sym_caseTr]; STATE 15738 [sym_blockTr];
   STATE 15874 [sym_asmTr; sym_withTr; sym_raiseTr; sym_statementTr; sym_gotoTr;
   sym_labeledStatementTr; sym__statementTr]; STATE 13921 [sym_assignment];
   STATE 11905 [sym_varAssignDef]; STATE 13921 [sym_varDef; sym_constDef];
   STATE 1283 [sym_label]; STATE 8114 [sym__expr; sym_exprConditional]; STATE 7363 [sym__ref;
   sym_lambda; sym_inherited; sym_exprDot; sym_exprDeref; sym_exprAs; sym_exprTpl;
   sym_exprSubscript; sym_exprCall]; STATE 8114 [sym_exprBinary; sym_exprUnary];
   STATE 7363 [sym_exprParens; sym_exprBrackets; sym__literal; sym_literalString];
   STATE 6967 [sym__literalString; sym_literalChar]; STATE 7363 [sym_literalNumber];
   STATE 7660 [sym__literalInt; sym__literalFloat]; STATE 6967 [aux_sym_literalString_repeat1];
   ACTIONS 9322 [anon_sym_SEMI]; ACTIONS 9986 [anon_sym_LBRACK]; ACTIONS 9988 [anon_sym_LPAREN];
   ACTIONS 9990 [aux_sym__literalString_token1]; ACTIONS 9992 [anon_sym_POUND];
   ACTIONS 9994 [aux_sym__literalInt_token1]; ACTIONS 9996 [aux_sym__literalInt_token2;
   aux_sym__literalInt_token3]; ACTIONS 9994 [aux_sym__literalFloat_token1];
   ACTIONS 9998 [sym_kAdd; sym_kSub]; ACTIONS 10000 [sym_kAt]; ACTIONS 10002 [sym_kTrue;
   sym_kFalse]; ACTIONS 10004 [sym_labelNumber]; ACTIONS 3 [sym__space];
   ACTIONS 5 [sym_ppDirective]; ACTIONS 3 [sym_comment]; ACTIONS 10002 [sym_ppFragmentExpr];
   ACTIONS 9990 [sym__literalStringMultiline]; ACTIONS 10006 [sym_identifier];
   ACTIONS 10008 [sym_kSpecialize]; ACTIONS 10236 [sym_kAsm]; ACTIONS 10238 [sym_kBegin];
   ACTIONS 10240 [sym_kCase]; ACTIONS 10016 [sym_kConst]; ACTIONS 3272 [sym_kElse];
   ACTIONS 10244 [sym_kFor]; ACTIONS 10020 [sym_kFunction]; ACTIONS 10246 [sym_kGoto];
   ACTIONS 10248 [sym_kIf]; ACTIONS 10026 [sym_kInherited]; ACTIONS 10002 [sym_kNil];
   ACTIONS 10000 [sym_kNot]; ACTIONS 10020 [sym_kProcedure]; ACTIONS 10250 [sym_kRaise];
   ACTIONS 10252 [sym_kRepeat]; ACTIONS 10032 [sym_kString]; ACTIONS 10254 [sym_kTry];
   ACTIONS 10036 [sym_kVar]; ACTIONS 10256 [sym_kWhile]; ACTIONS 10258 [sym_kWith]].

(** State 1162. *)
Definition ts_parse_table_1162 : parse_row :=
  [STATE 9071 [sym_if]; STATE 9068 [sym_ifElse; sym_while; sym_repeat; sym_for; sym_foreach;
   sym_try; sym_case; sym_block; sym_asm; sym_with; sym_raise; sym_statement; sym_goto;
   sym_labeledStatement; sym__statement]; STATE 15916 [sym_ifTr; sym_ifElseTr; sym_whileTr;
   sym_repeatTr; sym_forTr; sym_foreachTr; sym_tryTr; sym_caseTr]; STATE 15738 [sym_blockTr];
   STATE 15916 [sym_asmTr; sym_withTr; sym_raiseTr; sym_statementTr; sym_gotoTr;
   sym_labeledStatementTr; sym__statementTr]; STATE 13921 [sym_assignment];
   STATE 11905 [sym_varAssignDef]; STATE 13921 [sym_varDef; sym_constDef];
   STATE 1283 [sym_label]; STATE 8114 [sym__expr; sym_exprConditional]; STATE 7363 [sym__ref;
   sym_lambda; sym_inherited; sym_exprDot; sym_exprDeref; sym_exprAs; sym_exprTpl;
   sym_exprSubscript; sym_exprCall]; STATE 8114 [sym_exprBinary; sym_exprUnary];
   STATE 7363 [sym_exprParens; sym_exprBrackets; sym__literal; sym_literalString];
   STATE 6967 [sym__literalString; sym_literalChar]; STATE 7363 [sym_literalNumber];
   STATE 7660 [sym__literalInt; sym__literalFloat]; STATE 6967 [aux_sym_literalString_repeat1];
   ACTIONS 9324 [anon_sym_SEMI]; ACTIONS 9986 [anon_sym_LBRACK]; ACTIONS 9988 [anon_sym_LPAREN];
   ACTIONS 9990 [aux_sym__literalString_token1]; ACTIONS 9992 [anon_sym_POUND];
   ACTIONS 9994 [aux_sym__literalInt_token1]; ACTIONS 9996 [aux_sym__literalInt_token2;
   aux_sym__literalInt_token3]; ACTIONS 9994 [aux_sym__literalFloat_token1];
   ACTIONS 9998 [sym_kAdd; sym_kSub]; ACTIONS 10000 [sym_kAt]; ACTIONS 10002 [sym_kTrue;
   sym_kFalse]; ACTIONS 10004 [sym_labelNumber]; ACTIONS 3 [sym__space];
   ACTIONS 5 [sym_ppDirective]; ACTIONS 3 [sym_comment]; ACTIONS 10002 [sym_ppFragmentExpr];
   ACTIONS 9990 [sym__literalStringMultiline]; ACTIONS 10006 [sym_identifier];
   ACTIONS 10008 [sym_kSpecialize]; ACTIONS 10236 [sym_kAsm]; ACTIONS 10238 [sym_kBegin];
   ACTIONS 10240 [sym_kCase]; ACTIONS 10016 [sym_kConst]; ACTIONS 3278 [sym_kElse];
   ACTIONS 10244 [sym_kFor]; ACTIONS 10020 [sym_kFunction]; ACTIONS 10246 [sym_kGoto];
   ACTIONS 10248 [sym_kIf]; ACTIONS 10026 [sym_kInherited]; ACTIONS 10002 [sym_kNil];
   ACTIONS 10000 [sym_kNot]; ACTIONS 10020 [sym_kProcedure]; ACTIONS 10250 [sym_kRaise];
   ACTIONS 10252 [sym_kRepeat]; ACTIONS 10032 [sym_kString]; ACTIONS 10254 [sym_kTry];
   ACTIONS 10036 [sym_kVar]; ACTIONS 10256 [sym_kWhile]; ACTIONS 10258 [sym_kWith]].

(** State 1163. *)
Definition ts_parse_table_1163 : parse_row :=
  [STATE 9071 [sym_if]; STATE 9081 [sym_ifElse; sym_while; sym_repeat; sym_for; sym_foreach;
   sym_try; sym_case; sym_block; sym_asm; sym_with; sym_raise; sym_statement; sym_goto;
   sym_labeledStatement; sym__statement]; STATE 15171 [sym_ifTr; sym_ifElseTr; sym_whileTr;
   sym_repeatTr; sym_forTr; sym_foreachTr; sym_tryTr; sym_caseTr]; STATE 15738 [sym_blockTr];
   STATE 15171 [sym_asmTr; sym_withTr; sym_raiseTr; sym_statementTr; sym_gotoTr;
   sym_labeledStatementTr; sym__statementTr]; STATE 13921 [sym_assignment];
   STATE 11905 [sym_varAssignDef]; STATE 13921 [sym_varDef; sym_constDef];
   STATE 1283 [sym_label]; STATE 8114 [sym__expr; sym_exprConditional]; STATE 7363 [sym__ref;
   sym_lambda; sym_inherited; sym_exprDot; sym_exprDeref; sym_exprAs; sym_exprTpl;
   sym_exprSubscript; sym_exprCall]; STATE 8114 [sym_exprBinary; sym_exprUnary];
   STATE 7363 [sym_exprParens; sym_exprBrackets; sym__literal; sym_literalString];
   STATE 6967 [sym__literalString; sym_literalChar]; STATE 7363 [sym_literalNumber];
   STATE 7660 [sym__literalInt; sym__literalFloat]; STATE 6967 [aux_sym_literalString_repeat1];
   ACTIONS 9326 [anon_sym_SEMI]; ACTIONS 9986 [anon_sym_LBRACK]; ACTIONS 9988 [anon_sym_LPAREN];
   ACTIONS 9990 [aux_sym__literalString_token1]; ACTIONS 9992 [anon_sym_POUND];
   ACTIONS 9994 [aux_sym__literalInt_token1]; ACTIONS 9996 [aux_sym__literalInt_token2;
   aux_sym__literalInt_token3]; ACTIONS 9994 [aux_sym__literalFloat_token1];
   ACTIONS 9998 [sym_kAdd; sym_kSub]; ACTIONS 10000 [sym_kAt]; ACTIONS 10002 [sym_kTrue;
   sym_kFalse]; ACTIONS 10004 [sym_labelNumber]; ACTIONS 3 [sym__space];
   ACTIONS 5 [sym_ppDirective]; ACTIONS 3 [sym_comment]; ACTIONS 10002 [sym_ppFragmentExpr];
   ACTIONS 9990 [sym__literalStringMultiline]; ACTIONS 10006 [sym_identifier];
   ACTIONS 10008 [sym_kSpecialize]; ACTIONS 10236 [sym_kAsm]; ACTIONS 10238 [sym_kBegin];
   ACTIONS 10240 [sym_kCase]; ACTIONS 10016 [sym_kConst]; ACTIONS 3282 [sym_kElse];
   ACTIONS 10244 [sym_kFor]; ACTIONS 10020 [sym_kFunction]; ACTIONS 10246 [sym_kGoto];
   ACTIONS 10248 [sym_kIf]; ACTIONS 10026 [sym_kInherited]; ACTIONS 10002 [sym_kNil];
   ACTIONS 10000 [sym_kNot]; ACTIONS 10020 [sym_kProcedure]; ACTIONS 10250 [sym_kRaise];
   ACTIONS 10252 [sym_kRepeat]; ACTIONS 10032 [sym_kString]; ACTIONS 10254 [sym_kTry];
   ACTIONS 10036 [sym_kVar]; ACTIONS 10256 [sym_kWhile]; ACTIONS 10258 [sym_kWith]].

(** State 1164. *)
Definition ts_parse_table_1164 : parse_row :=
  [ACTIONS 10634 [anon_sym_SEMI; anon_sym_COMMA; anon_sym_LBRACK];
   ACTIONS 10636 [anon_sym_LPAREN]; ACTIONS 10634 [aux_sym__literalString_token1;
   anon_sym_POUND]; ACTIONS 10636 [aux_sym__literalInt_token1];
   ACTIONS 10634 [aux_sym__literalInt_token2; aux_sym__literalInt_token3];
   ACTIONS 10636 [aux_sym__literalFloat_token1]; ACTIONS 10634 [aux_sym_ppUsesBlock_token1;
   aux_sym_ppUsesBlock_token2; aux_sym_ppUsesBlock_token3]; ACTIONS 10636 [sym_kAdd; sym_kSub];
   ACTIONS 10634 [sym_kAt; sym_kTrue; sym_kFalse]; ACTIONS 3 [sym__space];
   ACTIONS 5 [sym_ppDirective]; ACTIONS 3 [sym_comment]; ACTIONS 10634 [sym_ppFragmentExpr;
   sym__literalStringMultiline; sym_identifier; sym_kDefault; sym_kNodefault; sym_kDispId;
   sym_kGeneric; sym_kSpecialize; sym_kOperator; sym_kPublic; sym_kStatic; sym_kVirtual;
   sym_kAbstract; sym_kDynamic; sym_kOverride; sym_kOverload; sym_kReintroduce; sym_kStdcall;
   sym_kCdecl; sym_kCppdecl; sym_kPascal; sym_kRegister; sym_kMwpascal; sym_kExternal;
   sym_kMessage; sym_kDeprecated; sym_kExperimental; sym_kPlatform; sym_kUnimplemented;
   sym_kCvar; sym_kExport; sym_kFar; sym_kNear; sym_kSafecall; sym_kAssembler; sym_kNostackframe;
   sym_kInterrupt; sym_kNoreturn; sym_kIocheck; sym_kLocal; sym_kHardfloat; sym_kSoftfloat;
   sym_kMs_abi_default; sym_kMs_abi_cdecl; sym_kSaveregisters; sym_kSysv_abi_default;
   sym_kSysv_abi_cdecl; sym_kVectorcall; sym_kVarargs; sym_kWinapi; sym_kAlias; sym_kAsm;
   sym_kBegin; sym_kCase; sym_kClass; sym_kConst; sym_kConstructor; sym_kDestructor;
   sym_kExports; sym_kFor; sym_kFunction; sym_kGoto; sym_kIf; sym_kInherited; sym_kInline;
   sym_kLabel; sym_kNil; sym_kNot; sym_kProcedure; sym_kProperty; sym_kRaise; sym_kRepeat;
   sym_kResourcestring; sym_kString; sym_kThreadvar; sym_kTry; sym_kType; sym_kUses; sym_kVar;
   sym_kWhile; sym_kWith]].

(** State 1165. *)
Definition ts_parse_table_1165 : parse_row :=
  [ACTIONS 10638 [anon_sym_SEMI; anon_sym_COMMA; anon_sym_LBRACK];
   ACTIONS 10640 [anon_sym_LPAREN]; ACTIONS 10638 [aux_sym__literalString_token1;
   anon_sym_POUND]; ACTIONS 10640 [aux_sym__literalInt_token1];
   ACTIONS 10638 [aux_sym__literalInt_token2; aux_sym__literalInt_token3];
   ACTIONS 10640 [aux_sym__literalFloat_token1]; ACTIONS 10638 [aux_sym_ppUsesBlock_token1;
   aux_sym_ppUsesBlock_token2; aux_sym_ppUsesBlock_token3]; ACTIONS 10640 [sym_kAdd; sym_kSub];
   ACTIONS 10638 [sym_kAt; sym_kTrue; sym_kFalse]; ACTIONS 3 [sym__space];
   ACTIONS 5 [sym_ppDirective]; ACTIONS 3 [sym_comment]; ACTIONS 10638 [sym_ppFragmentExpr;
   sym__literalStringMultiline; sym_identifier; sym_kDefault; sym_kNodefault; sym_kDispId;
   sym_kGeneric; sym_kSpecialize; sym_kOperator; sym_kPublic; sym_kStatic; sym_kVirtual;
   sym_kAbstract; sym_kDynamic; sym_kOverride; sym_kOverload; sym_kReintroduce; sym_kStdcall;
   sym_kCdecl; sym_kCppdecl; sym_kPascal; sym_kRegister; sym_kMwpascal; sym_kExternal;
   sym_kMessage; sym_kDeprecated; sym_kExperimental; sym_kPlatform; sym_kUnimplemented;
   sym_kCvar; sym_kExport; sym_kFar; sym_kNear; sym_kSafecall; sym_kAssembler; sym_kNostackframe;
   sym_kInterrupt; sym_kNoreturn; sym_kIocheck; sym_kLocal; sym_kHardfloat; sym_kSoftfloat;
   sym_kMs_abi_default; sym_kMs_abi_cdecl; sym_kSaveregisters; sym_kSysv_abi_default;
   sym_kSysv_abi_cdecl; sym_kVectorcall; sym_kVarargs; sym_kWinapi; sym_kAlias; sym_kAsm;
   sym_kBegin; sym_kCase; sym_kClass; sym_kConst; sym_kConstructor; sym_kDestructor;
   sym_kExports; sym_kFor; sym_kFunction; sym_kGoto; sym_kIf; sym_kInherited; sym_kInline;
   sym_kLabel; sym_kNil; sym_kNot; sym_kProcedure; sym_kProperty; sym_kRaise; sym_kRepeat;
   sym_kResourcestring; sym_kString; sym_kThreadvar; sym_kTry; sym_kType; sym_kUses; sym_kVar;
   sym_kWhile; sym_kWith]].

(** State 1166. *)
Definition ts_parse_table_1166 : parse_row :=
  [STATE 6212 [sym_if]; STATE 6345 [sym_ifElse; sym_while; sym_repeat; sym_for; sym_foreach;
   sym_try; sym_case; sym_block; sym_asm; sym_with; sym_raise; sym_statement; sym_goto;
   sym_labeledStatement; sym__statement]; STATE 14894 [sym_ifTr; sym_ifElseTr; sym_whileTr;
   sym_repeatTr; sym_forTr; sym_foreachTr; sym_tryTr; sym_caseTr]; STATE 15738 [sym_blockTr];
   STATE 14894 [sym_asmTr; sym_withTr; sym_raiseTr; sym_statementTr; sym_gotoTr;
   sym_labeledStatementTr; sym__statementTr]; STATE 13614 [sym_assignment];
   STATE 11905 [sym_varAssignDef]; STATE 13614 [sym_varDef; sym_constDef];
   STATE 1280 [sym_label]; STATE 8165 [sym__expr; sym_exprConditional]; STATE 7363 [sym__ref;
   sym_lambda; sym_inherited; sym_exprDot; sym_exprDeref; sym_exprAs; sym_exprTpl;
   sym_exprSubscript; sym_exprCall]; STATE 8165 [sym_exprBinary; sym_exprUnary];
   STATE 7363 [sym_exprParens; sym_exprBrackets; sym__literal; sym_literalString];
   STATE 6967 [sym__literalString; sym_literalChar]; STATE 7363 [sym_literalNumber];
   STATE 7660 [sym__literalInt; sym__literalFloat]; STATE 6967 [aux_sym_literalString_repeat1];
   ACTIONS 10580 [anon_sym_SEMI]; ACTIONS 9986 [anon_sym_LBRACK]; ACTIONS 9988 [anon_sym_LPAREN];
   ACTIONS 9990 [aux_sym__literalString_token1]; ACTIONS 9992 [anon_sym_POUND];
   ACTIONS 9994 [aux_sym__literalInt_token1]; ACTIONS 9996 [aux_sym__literalInt_token2;
   aux_sym__literalInt_token3]; ACTIONS 9994 [aux_sym__literalFloat_token1];
   ACTIONS 9998 [sym_kAdd; sym_kSub]; ACTIONS 10000 [sym_kAt]; ACTIONS 10002 [sym_kTrue;
   sym_kFalse]; ACTIONS 10004 [sym_labelNumber]; ACTIONS 3 [sym__space];
   ACTIONS 5 [sym_ppDirective]; ACTIONS 3 [sym_comment]; ACTIONS 10002 [sym_ppFragmentExpr];
   ACTIONS 9990 [sym__literalStringMultiline]; ACTIONS 10006 [sym_identifier];
   ACTIONS 10008 [sym_kSpecialize]; ACTIONS 10010 [sym_kAsm]; ACTIONS 10012 [sym_kBegin];
   ACTIONS 10014 [sym_kCase]; ACTIONS 10016 [sym_kConst]; ACTIONS 10606 [sym_kElse];
   ACTIONS 10018 [sym_kFor]; ACTIONS 10020 [sym_kFunction]; ACTIONS 10022 [sym_kGoto];
   ACTIONS 10584 [sym_kIf]; ACTIONS 10026 [sym_kInherited]; ACTIONS 10002 [sym_kNil];
   ACTIONS 10000 [sym_kNot]; ACTIONS 10020 [sym_kProcedure]; ACTIONS 10028 [sym_kRaise];
   ACTIONS 10030 [sym_kRepeat]; ACTIONS 10032 [sym_kString]; ACTIONS 10034 [sym_kTry];
   ACTIONS 10036 [sym_kVar]; ACTIONS 10038 [sym_kWhile]; ACTIONS 10040 [sym_kWith]].

(** State 1167. *)
Definition ts_parse_table_1167 : parse_row :=
  [STATE 5914 [sym_if]; STATE 5936 [sym_ifElse; sym_while; sym_repeat; sym_for; sym_foreach;
   sym_try; sym_case; sym_block; sym_asm; sym_with; sym_raise; sym_statement; sym_goto;
   sym_labeledStatement; sym__statement]; STATE 15874 [sym_ifTr; sym_ifElseTr; sym_whileTr;
   sym_repeatTr; sym_forTr; sym_foreachTr; sym_tryTr; sym_caseTr]; STATE 15738 [sym_blockTr];
   STATE 15874 [sym_asmTr; sym_withTr; sym_raiseTr; sym_statementTr; sym_gotoTr;
   sym_labeledStatementTr; sym__statementTr]; STATE 13130 [sym_assignment];
   STATE 11905 [sym_varAssignDef]; STATE 13130 [sym_varDef; sym_constDef];
   STATE 1274 [sym_label]; STATE 8020 [sym__expr; sym_exprConditional]; STATE 7363 [sym__ref;
   sym_lambda; sym_inherited; sym_exprDot; sym_exprDeref; sym_exprAs; sym_exprTpl;
   sym_exprSubscript; sym_exprCall]; STATE 8020 [sym_exprBinary; sym_exprUnary];
   STATE 7363 [sym_exprParens; sym_exprBrackets; sym__literal; sym_literalString];
   STATE 6967 [sym__literalString; sym_literalChar]; STATE 7363 [sym_literalNumber];
   STATE 7660 [sym__literalInt; sym__literalFloat]; STATE 6967 [aux_sym_literalString_repeat1];
   ACTIONS 10642 [anon_sym_SEMI]; ACTIONS 9986 [anon_sym_LBRACK]; ACTIONS 9988 [anon_sym_LPAREN];
   ACTIONS 9990 [aux_sym__literalString_token1]; ACTIONS 9992 [anon_sym_POUND];
   ACTIONS 9994 [aux_sym__literalInt_token1]; ACTIONS 9996 [aux_sym__literalInt_token2;
   aux_sym__literalInt_token3]; ACTIONS 9994 [aux_sym__literalFloat_token1];
   ACTIONS 9998 [sym_kAdd; sym_kSub]; ACTIONS 10000 [sym_kAt]; ACTIONS 10002 [sym_kTrue;
   sym_kFalse]; ACTIONS 10004 [sym_labelNumber]; ACTIONS 3 [sym__space];
   ACTIONS 5 [sym_ppDirective]; ACTIONS 3 [sym_comment]; ACTIONS 10002 [sym_ppFragmentExpr];
   ACTIONS 9990 [sym__literalStringMultiline]; ACTIONS 10006 [sym_identifier];
   ACTIONS 10008 [sym_kSpecialize]; ACTIONS 10494 [sym_kAsm]; ACTIONS 10496 [sym_kBegin];
   ACTIONS 10498 [sym_kCase]; ACTIONS 10016 [sym_kConst]; ACTIONS 3272 [sym_kElse];
   ACTIONS 10502 [sym_kFor]; ACTIONS 10020 [sym_kFunction]; ACTIONS 10504 [sym_kGoto];
   ACTIONS 10644 [sym_kIf]; ACTIONS 10026 [sym_kInherited]; ACTIONS 10002 [sym_kNil];
   ACTIONS 10000 [sym_kNot]; ACTIONS 10020 [sym_kProcedure]; ACTIONS 10508 [sym_kRaise];
   ACTIONS 10510 [sym_kRepeat]; ACTIONS 10032 [sym_kString]; ACTIONS 10512 [sym_kTry];
   ACTIONS 10036 [sym_kVar]; ACTIONS 10514 [sym_kWhile]; ACTIONS 10516 [sym_kWith]].

(** State 1168. *)
Definition ts_parse_table_1168 : parse_row :=
  [STATE 5914 [sym_if]; STATE 5946 [sym_ifElse; sym_while; sym_repeat; sym_for; sym_foreach;
   sym_try; sym_case; sym_block; sym_asm; sym_with; sym_raise; sym_statement; sym_goto;
   sym_labeledStatement; sym__statement]; STATE 15916 [sym_ifTr; sym_ifElseTr; sym_whileTr;
   sym_repeatTr; sym_forTr; sym_foreachTr; sym_tryTr; sym_caseTr]; STATE 15738 [sym_blockTr];
   STATE 15916 [sym_asmTr; sym_withTr; sym_raiseTr; sym_statementTr; sym_gotoTr;
   sym_labeledStatementTr; sym__statementTr]; STATE 13130 [sym_assignment];
   STATE 11905 [sym_varAssignDef]; STATE 13130 [sym_varDef; sym_constDef];
   STATE 1274 [sym_label]; STATE 8020 [sym__expr; sym_exprConditional]; STATE 7363 [sym__ref;
   sym_lambda; sym_inherited; sym_exprDot; sym_exprDeref; sym_exprAs; sym_exprTpl;
   sym_exprSubscript; sym_exprCall]; STATE 8020 [sym_exprBinary; sym_exprUnary];
   STATE 7363 [sym_exprParens; sym_exprBrackets; sym__literal; sym_literalString];
   STATE 6967 [sym__literalString; sym_literalChar]; STATE 7363 [sym_literalNumber];
   STATE 7660 [sym__literalInt; sym__literalFloat]; STATE 6967 [aux_sym_literalString_repeat1];
   ACTIONS 10646 [anon_sym_SEMI]; ACTIONS 9986 [anon_sym_LBRACK]; ACTIONS 9988 [anon_sym_LPAREN];
   ACTIONS 9990 [aux_sym__literalString_token1]; ACTIONS 9992 [anon_sym_POUND];
   ACTIONS 9994 [aux_sym__literalInt_token1]; ACTIONS 9996 [aux_sym__literalInt_token2;
   aux_sym__literalInt_token3]; ACTIONS 9994 [aux_sym__literalFloat_token1];
   ACTIONS 9998 [sym_kAdd; sym_kSub]; ACTIONS 10000 [sym_kAt]; ACTIONS 10002 [sym_kTrue;
   sym_kFalse]; ACTIONS 10004 [sym_labelNumber]; ACTIONS 3 [sym__space];
   ACTIONS 5 [sym_ppDirective]; ACTIONS 3 [sym_comment]; ACTIONS 10002 [sym_ppFragmentExpr];
   ACTIONS 9990 [sym__literalStringMultiline]; ACTIONS 10006 [sym_identifier];
   ACTIONS 10008 [sym_kSpecialize]; ACTIONS 10494 [sym_kAsm]; ACTIONS 10496 [sym_kBegin];
   ACTIONS 10498 [sym_kCase]; ACTIONS 10016 [sym_kConst]; ACTIONS 3278 [sym_kElse];
   ACTIONS 10502 [sym_kFor]; ACTIONS 10020 [sym_kFunction]; ACTIONS 10504 [sym_kGoto];
   ACTIONS 10644 [sym_kIf]; ACTIONS 10026 [sym_kInherited]; ACTIONS 10002 [sym_kNil];
   ACTIONS 10000 [sym_kNot]; ACTIONS 10020 [sym_kProcedure]; ACTIONS 10508 [sym_kRaise];
   ACTIONS 10510 [sym_kRepeat]; ACTIONS 10032 [sym_kString]; ACTIONS 10512 [sym_kTry];
   ACTIONS 10036 [sym_kVar]; ACTIONS 10514 [sym_kWhile]; ACTIONS 10516 [sym_kWith]].

(** State 1169. *)
Definition ts_parse_table_1169 : parse_row :=
  [STATE 5914 [sym_if]; STATE 5999 [sym_ifElse; sym_while; sym_repeat; sym_for; sym_foreach;
   sym_try; sym_case; sym_block; sym_asm; sym_with; sym_raise; sym_statement; sym_goto;
   sym_labeledStatement; sym__statement]; STATE 15171 [sym_ifTr; sym_ifElseTr; sym_whileTr;
   sym_repeatTr; sym_forTr; sym_foreachTr; sym_tryTr; sym_caseTr]; STATE 15738 [sym_blockTr];
   STATE 15171 [sym_asmTr; sym_withTr; sym_raiseTr; sym_statementTr; sym_gotoTr;
   sym_labeledStatementTr; sym__statementTr]; STATE 13130 [sym_assignment];
   STATE 11905 [sym_varAssignDef]; STATE 13130 [sym_varDef; sym_constDef];
   STATE 1274 [sym_label]; STATE 8020 [sym__expr; sym_exprConditional]; STATE 7363 [sym__ref;
   sym_lambda; sym_inherited; sym_exprDot; sym_exprDeref; sym_exprAs; sym_exprTpl;
   sym_exprSubscript; sym_exprCall]; STATE 8020 [sym_exprBinary; sym_exprUnary];
   STATE 7363 [sym_exprParens; sym_exprBrackets; sym__literal; sym_literalString];
   STATE 6967 [sym__literalString; sym_literalChar]; STATE 7363 [sym_literalNumber];
   STATE 7660 [sym__literalInt; sym__literalFloat]; STATE 6967 [aux_sym_literalString_repeat1];
   ACTIONS 10648 [anon_sym_SEMI]; ACTIONS 9986 [anon_sym_LBRACK]; ACTIONS 9988 [anon_sym_LPAREN];
   ACTIONS 9990 [aux_sym__literalString_token1]; ACTIONS 9992 [anon_sym_POUND];
   ACTIONS 9994 [aux_sym__literalInt_token1]; ACTIONS 9996 [aux_sym__literalInt_token2;
   aux_sym__literalInt_token3]; ACTIONS 9994 [aux_sym__literalFloat_token1];
   ACTIONS 9998 [sym_kAdd; sym_kSub]; ACTIONS 10000 [sym_kAt]; ACTIONS 10002 [sym_kTrue;
   sym_kFalse]; ACTIONS 10004 [sym_labelNumber]; ACTIONS 3 [sym__space];
   ACTIONS 5 [sym_ppDirective]; ACTIONS 3 [sym_comment]; ACTIONS 10002 [sym_ppFragmentExpr];
   ACTIONS 9990 [sym__literalStringMultiline]; ACTIONS 10006 [sym_identifier];
   ACTIONS 10008 [sym_kSpecialize]; ACTIONS 10494 [sym_kAsm]; ACTIONS 10496 [sym_kBegin];
   ACTIONS 10498 [sym_kCase]; ACTIONS 10016 [sym_kConst]; ACTIONS 3282 [sym_kElse];
   ACTIONS 10502 [sym_kFor]; ACTIONS 10020 [sym_kFunction]; ACTIONS 10504 [sym_kGoto];
   ACTIONS 10644 [sym_kIf]; ACTIONS 10026 [sym_kInherited]; ACTIONS 10002 [sym_kNil];
   ACTIONS 10000 [sym_kNot]; ACTIONS 10020 [sym_kProcedure]; ACTIONS 10508 [sym_kRaise];
   ACTIONS 10510 [sym_kRepeat]; ACTIONS 10032 [sym_kString]; ACTIONS 10512 [sym_kTry];
   ACTIONS 10036 [sym_kVar]; ACTIONS 10514 [sym_kWhile]; ACTIONS 10516 [sym_kWith]].

(** State 1170. *)
Definition ts_parse_table_1170 : parse_row :=
  [STATE 12669 [sym_if]; STATE 12562 [sym_ifElse; sym_while; sym_repeat; sym_for; sym_foreach;
   sym_try; sym_case; sym_block; sym_asm; sym_with; sym_raise; sym_statement; sym_goto;
   sym__statement]; STATE 13777 [sym_ifTr; sym_ifElseTr; sym_whileTr; sym_repeatTr; sym_forTr;
   sym_foreachTr; sym_tryTr; sym_caseTr]; STATE 13296 [sym_blockTr]; STATE 13777 [sym_asmTr;
   sym_withTr; sym_raiseTr; sym_statementTr; sym_gotoTr; sym__statementTr];
   STATE 12775 [sym_assignment]; STATE 11883 [sym_varAssignDef]; STATE 12775 [sym_varDef;
   sym_constDef]; STATE 1175 [sym_label]; STATE 7815 [sym__expr; sym_exprConditional];
   STATE 7341 [sym__ref; sym_lambda; sym_inherited; sym_exprDot; sym_exprDeref; sym_exprAs;
   sym_exprTpl; sym_exprSubscript; sym_exprCall]; STATE 7815 [sym_exprBinary; sym_exprUnary];
   STATE 7341 [sym_exprParens; sym_exprBrackets; sym__literal; sym_literalString];
   STATE 6534 [sym__literalString; sym_literalChar]; STATE 7341 [sym_literalNumber];
   STATE 7552 [sym__literalInt; sym__literalFloat];
   STATE 1175 [aux_sym_labeledStatement_repeat1]; STATE 6534 [aux_sym_literalString_repeat1];
   ACTIONS 10650 [anon_sym_SEMI]; ACTIONS 9634 [anon_sym_LBRACK]; ACTIONS 9636 [anon_sym_LPAREN];
   ACTIONS 9638 [aux_sym__literalString_token1]; ACTIONS 9640 [anon_sym_POUND];
   ACTIONS 9642 [aux_sym__literalInt_token1]; ACTIONS 9644 [aux_sym__literalInt_token2;
   aux_sym__literalInt_token3]; ACTIONS 9642 [aux_sym__literalFloat_token1];
   ACTIONS 9646 [sym_kAdd; sym_kSub]; ACTIONS 9648 [sym_kAt]; ACTIONS 9650 [sym_kTrue;
   sym_kFalse]; ACTIONS 9652 [sym_labelNumber]; ACTIONS 3 [sym__space];
   ACTIONS 5 [sym_ppDirective]; ACTIONS 3 [sym_comment]; ACTIONS 9650 [sym_ppFragmentExpr];
   ACTIONS 9638 [sym__literalStringMultiline]; ACTIONS 9654 [sym_identifier];
   ACTIONS 9656 [sym_kSpecialize]; ACTIONS 9718 [sym_kAsm]; ACTIONS 9720 [sym_kBegin];
   ACTIONS 9722 [sym_kCase]; ACTIONS 9664 [sym_kConst]; ACTIONS 4301 [sym_kElse; sym_kEnd];
   ACTIONS 9726 [sym_kFor]; ACTIONS 9668 [sym_kFunction]; ACTIONS 9728 [sym_kGoto];
   ACTIONS 9730 [sym_kIf]; ACTIONS 9674 [sym_kInherited]; ACTIONS 9650 [sym_kNil];
   ACTIONS 9648 [sym_kNot]; ACTIONS 9668 [sym_kProcedure]; ACTIONS 9732 [sym_kRaise];
   ACTIONS 9734 [sym_kRepeat]; ACTIONS 9680 [sym_kString]; ACTIONS 9736 [sym_kTry];
   ACTIONS 9684 [sym_kVar]; ACTIONS 9738 [sym_kWhile]; ACTIONS 9740 [sym_kWith]].

(** State 1171. *)
Definition ts_parse_table_1171 : parse_row :=
  [STATE 5914 [sym_if]; STATE 5926 [sym_ifElse; sym_while; sym_repeat; sym_for; sym_foreach;
   sym_try; sym_case; sym_block; sym_asm; sym_with; sym_raise; sym_statement; sym_goto];
   STATE 5905 [sym_labeledStatement]; STATE 5926 [sym__statement]; STATE 14171 [sym_ifTr;
   sym_ifElseTr; sym_whileTr; sym_repeatTr; sym_forTr; sym_foreachTr; sym_tryTr; sym_caseTr];
   STATE 15738 [sym_blockTr]; STATE 14171 [sym_asmTr; sym_withTr; sym_raiseTr; sym_statementTr;
   sym_gotoTr]; STATE 14168 [sym_labeledStatementTr]; STATE 14171 [sym__statementTr];
   STATE 13130 [sym_assignment]; STATE 11905 [sym_varAssignDef]; STATE 13130 [sym_varDef;
   sym_constDef]; STATE 1274 [sym_label]; STATE 8020 [sym__expr; sym_exprConditional];
   STATE 7363 [sym__ref; sym_lambda; sym_inherited; sym_exprDot; sym_exprDeref; sym_exprAs;
   sym_exprTpl; sym_exprSubscript; sym_exprCall]; STATE 8020 [sym_exprBinary; sym_exprUnary];
   STATE 7363 [sym_exprParens; sym_exprBrackets; sym__literal; sym_literalString];
   STATE 6967 [sym__literalString; sym_literalChar]; STATE 7363 [sym_literalNumber];
   STATE 7660 [sym__literalInt; sym__literalFloat]; STATE 6967 [aux_sym_literalString_repeat1];
   ACTIONS 10652 [anon_sym_SEMI]; ACTIONS 9986 [anon_sym_LBRACK]; ACTIONS 9988 [anon_sym_LPAREN];
   ACTIONS 9990 [aux_sym__literalString_token1]; ACTIONS 9992 [anon_sym_POUND];
   ACTIONS 9994 [aux_sym__literalInt_token1]; ACTIONS 9996 [aux_sym__literalInt_token2;
   aux_sym__literalInt_token3]; ACTIONS 9994 [aux_sym__literalFloat_token1];
   ACTIONS 9998 [sym_kAdd; sym_kSub]; ACTIONS 10000 [sym_kAt]; ACTIONS 10002 [sym_kTrue;
   sym_kFalse]; ACTIONS 10004 [sym_labelNumber]; ACTIONS 3 [sym__space];
   ACTIONS 5 [sym_ppDirective]; ACTIONS 3 [sym_comment]; ACTIONS 10002 [sym_ppFragmentExpr];
   ACTIONS 9990 [sym__literalStringMultiline]; ACTIONS 10006 [sym_identifier];
   ACTIONS 10008 [sym_kSpecialize]; ACTIONS 10494 [sym_kAsm]; ACTIONS 10496 [sym_kBegin];
   ACTIONS 10498 [sym_kCase]; ACTIONS 10016 [sym_kConst]; ACTIONS 3286 [sym_kElse];
   ACTIONS 10502 [sym_kFor]; ACTIONS 10020 [sym_kFunction]; ACTIONS 10504 [sym_kGoto];
   ACTIONS 10644 [sym_kIf]; ACTIONS 10026 [sym_kInherited]; ACTIONS 10002 [sym_kNil];
   ACTIONS 10000 [sym_kNot]; ACTIONS 10020 [sym_kProcedure]; ACTIONS 10508 [sym_kRaise];
   ACTIONS 10510 [sym_kRepeat]; ACTIONS 10032 [sym_kString]; ACTIONS 10512 [sym_kTry];
   ACTIONS 10036 [sym_kVar]; ACTIONS 10514 [sym_kWhile]; ACTIONS 10516 [sym_kWith]].

(** State 1172. *)
Definition ts_parse_table_1172 : parse_row :=
  [STATE 5914 [sym_if]; STATE 5931 [sym_ifElse; sym_while; sym_repeat; sym_for; sym_foreach;
   sym_try; sym_case; sym_block; sym_asm; sym_with; sym_raise; sym_statement; sym_goto;
   sym_labeledStatement; sym__statement]; STATE 15904 [sym_ifTr; sym_ifElseTr; sym_whileTr;
   sym_repeatTr; sym_forTr; sym_foreachTr; sym_tryTr; sym_caseTr]; STATE 15738 [sym_blockTr];
   STATE 15904 [sym_asmTr; sym_withTr; sym_raiseTr; sym_statementTr; sym_gotoTr;
   sym_labeledStatementTr; sym__statementTr]; STATE 13130 [sym_assignment];
   STATE 11905 [sym_varAssignDef]; STATE 13130 [sym_varDef; sym_constDef];
   STATE 1274 [sym_label]; STATE 8020 [sym__expr; sym_exprConditional]; STATE 7363 [sym__ref;
   sym_lambda; sym_inherited; sym_exprDot; sym_exprDeref; sym_exprAs; sym_exprTpl;
   sym_exprSubscript; sym_exprCall]; STATE 8020 [sym_exprBinary; sym_exprUnary];
   STATE 7363 [sym_exprParens; sym_exprBrackets; sym__literal; sym_literalString];
   STATE 6967 [sym__literalString; sym_literalChar]; STATE 7363 [sym_literalNumber];
   STATE 7660 [sym__literalInt; sym__literalFloat]; STATE 6967 [aux_sym_literalString_repeat1];
   ACTIONS 10654 [anon_sym_SEMI]; ACTIONS 9986 [anon_sym_LBRACK]; ACTIONS 9988 [anon_sym_LPAREN];
   ACTIONS 9990 [aux_sym__literalString_token1]; ACTIONS 9992 [anon_sym_POUND];
   ACTIONS 9994 [aux_sym__literalInt_token1]; ACTIONS 9996 [aux_sym__literalInt_token2;
   aux_sym__literalInt_token3]; ACTIONS 9994 [aux_sym__literalFloat_token1];
   ACTIONS 9998 [sym_kAdd; sym_kSub]; ACTIONS 10000 [sym_kAt]; ACTIONS 10002 [sym_kTrue;
   sym_kFalse]; ACTIONS 10004 [sym_labelNumber]; ACTIONS 3 [sym__space];
   ACTIONS 5 [sym_ppDirective]; ACTIONS 3 [sym_comment]; ACTIONS 10002 [sym_ppFragmentExpr];
   ACTIONS 9990 [sym__literalStringMultiline]; ACTIONS 10006 [sym_identifier];
   ACTIONS 10008 [sym_kSpecialize]; ACTIONS 10494 [sym_kAsm]; ACTIONS 10496 [sym_kBegin];
   ACTIONS 10498 [sym_kCase]; ACTIONS 10016 [sym_kConst]; ACTIONS 3290 [sym_kElse];
   ACTIONS 10502 [sym_kFor]; ACTIONS 10020 [sym_kFunction]; ACTIONS 10504 [sym_kGoto];
   ACTIONS 10644 [sym_kIf]; ACTIONS 10026 [sym_kInherited]; ACTIONS 10002 [sym_kNil];
   ACTIONS 10000 [sym_kNot]; ACTIONS 10020 [sym_kProcedure]; ACTIONS 10508 [sym_kRaise];
   ACTIONS 10510 [sym_kRepeat]; ACTIONS 10032 [sym_kString]; ACTIONS 10512 [sym_kTry];
   ACTIONS 10036 [sym_kVar]; ACTIONS 10514 [sym_kWhile]; ACTIONS 10516 [sym_kWith]].

(** State 1173. *)
Definition ts_parse_table_1173 : parse_row :=
  [STATE 5914 [sym_if]; STATE 5918 [sym_ifElse; sym_while; sym_repeat; sym_for; sym_foreach;
   sym_try; sym_case; sym_block; sym_asm; sym_with; sym_raise; sym_statement; sym_goto;
   sym_labeledStatement; sym__statement]; STATE 15932 [sym_ifTr; sym_ifElseTr; sym_whileTr;
   sym_repeatTr; sym_forTr; sym_foreachTr; sym_tryTr; sym_caseTr]; STATE 15738 [sym_blockTr];
   STATE 15932 [sym_asmTr; sym_withTr; sym_raiseTr; sym_statementTr; sym_gotoTr;
   sym_labeledStatementTr; sym__statementTr]; STATE 13130 [sym_assignment];
   STATE 11905 [sym_varAssignDef]; STATE 13130 [sym_varDef; sym_constDef];
   STATE 1274 [sym_label]; STATE 8020 [sym__expr; sym_exprConditional]; STATE 7363 [sym__ref;
   sym_lambda; sym_inherited; sym_exprDot; sym_exprDeref; sym_exprAs; sym_exprTpl;
   sym_exprSubscript; sym_exprCall]; STATE 8020 [sym_exprBinary; sym_exprUnary];
   STATE 7363 [sym_exprParens; sym_exprBrackets; sym__literal; sym_literalString];
   STATE 6967 [sym__literalString; sym_literalChar]; STATE 7363 [sym_literalNumber];
   STATE 7660 [sym__literalInt; sym__literalFloat]; STATE 6967 [aux_sym_literalString_repeat1];
   ACTIONS 10656 [anon_sym_SEMI]; ACTIONS 9986 [anon_sym_LBRACK]; ACTIONS 9988 [anon_sym_LPAREN];
   ACTIONS 9990 [aux_sym__literalString_token1]; ACTIONS 9992 [anon_sym_POUND];
   ACTIONS 9994 [aux_sym__literalInt_token1]; ACTIONS 9996 [aux_sym__literalInt_token2;
   aux_sym__literalInt_token3]; ACTIONS 9994 [aux_sym__literalFloat_token1];
   ACTIONS 9998 [sym_kAdd; sym_kSub]; ACTIONS 10000 [sym_kAt]; ACTIONS 10002 [sym_kTrue;
   sym_kFalse]; ACTIONS 10004 [sym_labelNumber]; ACTIONS 3 [sym__space];
   ACTIONS 5 [sym_ppDirective]; ACTIONS 3 [sym_comment]; ACTIONS 10002 [sym_ppFragmentExpr];
   ACTIONS 9990 [sym__literalStringMultiline]; ACTIONS 10006 [sym_identifier];
   ACTIONS 10008 [sym_kSpecialize]; ACTIONS 10494 [sym_kAsm]; ACTIONS 10496 [sym_kBegin];
   ACTIONS 10498 [sym_kCase]; ACTIONS 10016 [sym_kConst]; ACTIONS 3296 [sym_kElse];
   ACTIONS 10502 [sym_kFor]; ACTIONS 10020 [sym_kFunction]; ACTIONS 10504 [sym_kGoto];
   ACTIONS 10644 [sym_kIf]; ACTIONS 10026 [sym_kInherited]; ACTIONS 10002 [sym_kNil];
   ACTIONS 10000 [sym_kNot]; ACTIONS 10020 [sym_kProcedure]; ACTIONS 10508 [sym_kRaise];
   ACTIONS 10510 [sym_kRepeat]; ACTIONS 10032 [sym_kString]; ACTIONS 10512 [sym_kTry];
   ACTIONS 10036 [sym_kVar]; ACTIONS 10514 [sym_kWhile]; ACTIONS 10516 [sym_kWith]].

(** State 1174. *)
Definition ts_parse_table_1174 : parse_row :=
  [STATE 5914 [sym_if]; STATE 5984 [sym_ifElse; sym_while; sym_repeat; sym_for; sym_foreach;
   sym_try; sym_case; sym_block; sym_asm; sym_with; sym_raise; sym_statement; sym_goto;
   sym_labeledStatement; sym__statement]; STATE 15995 [sym_ifTr; sym_ifElseTr; sym_whileTr;
   sym_repeatTr; sym_forTr; sym_foreachTr; sym_tryTr; sym_caseTr]; STATE 15738 [sym_blockTr];
   STATE 15995 [sym_asmTr; sym_withTr; sym_raiseTr; sym_statementTr; sym_gotoTr;
   sym_labeledStatementTr; sym__statementTr]; STATE 13130 [sym_assignment];
   STATE 11905 [sym_varAssignDef]; STATE 13130 [sym_varDef; sym_constDef];
   STATE 1274 [sym_label]; STATE 8020 [sym__expr; sym_exprConditional]; STATE 7363 [sym__ref;
   sym_lambda; sym_inherited; sym_exprDot; sym_exprDeref; sym_exprAs; sym_exprTpl;
   sym_exprSubscript; sym_exprCall]; STATE 8020 [sym_exprBinary; sym_exprUnary];
   STATE 7363 [sym_exprParens; sym_exprBrackets; sym__literal; sym_literalString];
   STATE 6967 [sym__literalString; sym_literalChar]; STATE 7363 [sym_literalNumber];
   STATE 7660 [sym__literalInt; sym__literalFloat]; STATE 6967 [aux_sym_literalString_repeat1];
   ACTIONS 10658 [anon_sym_SEMI]; ACTIONS 9986 [anon_sym_LBRACK]; ACTIONS 9988 [anon_sym_LPAREN];
   ACTIONS 9990 [aux_sym__literalString_token1]; ACTIONS 9992 [anon_sym_POUND];
   ACTIONS 9994 [aux_sym__literalInt_token1]; ACTIONS 9996 [aux_sym__literalInt_token2;
   aux_sym__literalInt_token3]; ACTIONS 9994 [aux_sym__literalFloat_token1];
   ACTIONS 9998 [sym_kAdd; sym_kSub]; ACTIONS 10000 [sym_kAt]; ACTIONS 10002 [sym_kTrue;
   sym_kFalse]; ACTIONS 10004 [sym_labelNumber]; ACTIONS 3 [sym__space];
   ACTIONS 5 [sym_ppDirective]; ACTIONS 3 [sym_comment]; ACTIONS 10002 [sym_ppFragmentExpr];
   ACTIONS 9990 [sym__literalStringMultiline]; ACTIONS 10006 [sym_identifier];
   ACTIONS 10008 [sym_kSpecialize]; ACTIONS 10494 [sym_kAsm]; ACTIONS 10496 [sym_kBegin];
   ACTIONS 10498 [sym_kCase]; ACTIONS 10016 [sym_kConst]; ACTIONS 3304 [sym_kElse];
   ACTIONS 10502 [sym_kFor]; ACTIONS 10020 [sym_kFunction]; ACTIONS 10504 [sym_kGoto];
   ACTIONS 10644 [sym_kIf]; ACTIONS 10026 [sym_kInherited]; ACTIONS 10002 [sym_kNil];
   ACTIONS 10000 [sym_kNot]; ACTIONS 10020 [sym_kProcedure]; ACTIONS 10508 [sym_kRaise];
   ACTIONS 10510 [sym_kRepeat]; ACTIONS 10032 [sym_kString]; ACTIONS 10512 [sym_kTry];
   ACTIONS 10036 [sym_kVar]; ACTIONS 10514 [sym_kWhile]; ACTIONS 10516 [sym_kWith]].

(** State 1175. *)
Definition ts_parse_table_1175 : parse_row :=
  [STATE 12669 [sym_if]; STATE 12658 [sym_ifElse; sym_while; sym_repeat; sym_for; sym_foreach;
   sym_try; sym_case; sym_block; sym_asm; sym_with; sym_raise; sym_statement; sym_goto;
   sym__statement]; STATE 13807 [sym_ifTr; sym_ifElseTr; sym_whileTr; sym_repeatTr; sym_forTr;
   sym_foreachTr; sym_tryTr; sym_caseTr]; STATE 13296 [sym_blockTr]; STATE 13807 [sym_asmTr;
   sym_withTr; sym_raiseTr; sym_statementTr; sym_gotoTr; sym__statementTr];
   STATE 12775 [sym_assignment]; STATE 11883 [sym_varAssignDef]; STATE 12775 [sym_varDef;
   sym_constDef]; STATE 6114 [sym_label]; STATE 7815 [sym__expr; sym_exprConditional];
   STATE 7341 [sym__ref; sym_lambda; sym_inherited; sym_exprDot; sym_exprDeref; sym_exprAs;
   sym_exprTpl; sym_exprSubscript; sym_exprCall]; STATE 7815 [sym_exprBinary; sym_exprUnary];
   STATE 7341 [sym_exprParens; sym_exprBrackets; sym__literal; sym_literalString];
   STATE 6534 [sym__literalString; sym_literalChar]; STATE 7341 [sym_literalNumber];
   STATE 7552 [sym__literalInt; sym__literalFloat];
   STATE 6114 [aux_sym_labeledStatement_repeat1]; STATE 6534 [aux_sym_literalString_repeat1];
   ACTIONS 10660 [anon_sym_SEMI]; ACTIONS 9634 [anon_sym_LBRACK]; ACTIONS 9636 [anon_sym_LPAREN];
   ACTIONS 9638 [aux_sym__literalString_token1]; ACTIONS 9640 [anon_sym_POUND];
   ACTIONS 9642 [aux_sym__literalInt_token1]; ACTIONS 9644 [aux_sym__literalInt_token2;
   aux_sym__literalInt_token3]; ACTIONS 9642 [aux_sym__literalFloat_token1];
   ACTIONS 9646 [sym_kAdd; sym_kSub]; ACTIONS 9648 [sym_kAt]; ACTIONS 9650 [sym_kTrue;
   sym_kFalse]; ACTIONS 9652 [sym_labelNumber]; ACTIONS 3 [sym__space];
   ACTIONS 5 [sym_ppDirective]; ACTIONS 3 [sym_comment]; ACTIONS 9650 [sym_ppFragmentExpr];
   ACTIONS 9638 [sym__literalStringMultiline]; ACTIONS 9654 [sym_identifier];
   ACTIONS 9656 [sym_kSpecialize]; ACTIONS 9718 [sym_kAsm]; ACTIONS 9720 [sym_kBegin];
   ACTIONS 9722 [sym_kCase]; ACTIONS 9664 [sym_kConst]; ACTIONS 4439 [sym_kElse; sym_kEnd];
   ACTIONS 9726 [sym_kFor]; ACTIONS 9668 [sym_kFunction]; ACTIONS 9728 [sym_kGoto];
   ACTIONS 9730 [sym_kIf]; ACTIONS 9674 [sym_kInherited]; ACTIONS 9650 [sym_kNil];
   ACTIONS 9648 [sym_kNot]; ACTIONS 9668 [sym_kProcedure]; ACTIONS 9732 [sym_kRaise];
   ACTIONS 9734 [sym_kRepeat]; ACTIONS 9680 [sym_kString]; ACTIONS 9736 [sym_kTry];
   ACTIONS 9684 [sym_kVar]; ACTIONS 9738 [sym_kWhile]; ACTIONS 9740 [sym_kWith]].

(** State 1176. *)
Definition ts_parse_table_1176 : parse_row :=
  [STATE 9071 [sym_if]; STATE 9099 [sym_ifElse; sym_while; sym_repeat; sym_for; sym_foreach;
   sym_try; sym_case; sym_block; sym_asm; sym_with; sym_raise; sym_statement; sym_goto];
   STATE 9098 [sym_labeledStatement]; STATE 9099 [sym__statement]; STATE 14171 [sym_ifTr;
   sym_ifElseTr; sym_whileTr; sym_repeatTr; sym_forTr; sym_foreachTr; sym_tryTr; sym_caseTr];
   STATE 15738 [sym_blockTr]; STATE 14171 [sym_asmTr; sym_withTr; sym_raiseTr; sym_statementTr;
   sym_gotoTr]; STATE 14168 [sym_labeledStatementTr]; STATE 14171 [sym__statementTr];
   STATE 13921 [sym_assignment]; STATE 11905 [sym_varAssignDef]; STATE 13921 [sym_varDef;
   sym_constDef]; STATE 1283 [sym_label]; STATE 8114 [sym__expr; sym_exprConditional];
   STATE 7363 [sym__ref; sym_lambda; sym_inherited; sym_exprDot; sym_exprDeref; sym_exprAs;
   sym_exprTpl; sym_exprSubscript; sym_exprCall]; STATE 8114 [sym_exprBinary; sym_exprUnary];
   STATE 7363 [sym_exprParens; sym_exprBrackets; sym__literal; sym_literalString];
   STATE 6967 [sym__literalString; sym_literalChar]; STATE 7363 [sym_literalNumber];
   STATE 7660 [sym__literalInt; sym__literalFloat]; STATE 6967 [aux_sym_literalString_repeat1];
   ACTIONS 9328 [anon_sym_SEMI]; ACTIONS 9986 [anon_sym_LBRACK]; ACTIONS 9988 [anon_sym_LPAREN];
   ACTIONS 9990 [aux_sym__literalString_token1]; ACTIONS 9992 [anon_sym_POUND];
   ACTIONS 9994 [aux_sym__literalInt_token1]; ACTIONS 9996 [aux_sym__literalInt_token2;
   aux_sym__literalInt_token3]; ACTIONS 9994 [aux_sym__literalFloat_token1];
   ACTIONS 9998 [sym_kAdd; sym_kSub]; ACTIONS 10000 [sym_kAt]; ACTIONS 10002 [sym_kTrue;
   sym_kFalse]; ACTIONS 10004 [sym_labelNumber]; ACTIONS 3 [sym__space];
   ACTIONS 5 [sym_ppDirective]; ACTIONS 3 [sym_comment]; ACTIONS 10002 [sym_ppFragmentExpr];
   ACTIONS 9990 [sym__literalStringMultiline]; ACTIONS 10006 [sym_identifier];
   ACTIONS 10008 [sym_kSpecialize]; ACTIONS 10236 [sym_kAsm]; ACTIONS 10238 [sym_kBegin];
   ACTIONS 10240 [sym_kCase]; ACTIONS 10016 [sym_kConst]; ACTIONS 3286 [sym_kElse];
   ACTIONS 10244 [sym_kFor]; ACTIONS 10020 [sym_kFunction]; ACTIONS 10246 [sym_kGoto];
   ACTIONS 10248 [sym_kIf]; ACTIONS 10026 [sym_kInherited]; ACTIONS 10002 [sym_kNil];
   ACTIONS 10000 [sym_kNot]; ACTIONS 10020 [sym_kProcedure]; ACTIONS 10250 [sym_kRaise];
   ACTIONS 10252 [sym_kRepeat]; ACTIONS 10032 [sym_kString]; ACTIONS 10254 [sym_kTry];
   ACTIONS 10036 [sym_kVar]; ACTIONS 10256 [sym_kWhile]; ACTIONS 10258 [sym_kWith]].

(** State 1177. *)
Definition ts_parse_table_1177 : parse_row :=
  [STATE 1217 [sym_if]; STATE 1273 [sym_ifElse; sym_while; sym_repeat; sym_for; sym_foreach;
   sym_try; sym_case; sym_block; sym_asm; sym_with; sym_raise; sym_statement; sym_goto;
   sym_labeledStatement; sym__statement]; STATE 15966 [sym_ifTr; sym_ifElseTr; sym_whileTr;
   sym_repeatTr; sym_forTr; sym_foreachTr; sym_tryTr; sym_caseTr]; STATE 15738 [sym_blockTr];
   STATE 15966 [sym_asmTr; sym_withTr; sym_raiseTr; sym_statementTr; sym_gotoTr;
   sym_labeledStatementTr; sym__statementTr]; STATE 13593 [sym_assignment];
   STATE 11905 [sym_varAssignDef]; STATE 13593 [sym_varDef; sym_constDef];
   STATE 1216 [sym_label]; STATE 7997 [sym__expr; sym_exprConditional]; STATE 7363 [sym__ref;
   sym_lambda; sym_inherited; sym_exprDot; sym_exprDeref; sym_exprAs; sym_exprTpl;
   sym_exprSubscript; sym_exprCall]; STATE 7997 [sym_exprBinary; sym_exprUnary];
   STATE 7363 [sym_exprParens; sym_exprBrackets; sym__literal; sym_literalString];
   STATE 6967 [sym__literalString; sym_literalChar]; STATE 7363 [sym_literalNumber];
   STATE 7660 [sym__literalInt; sym__literalFloat]; STATE 6967 [aux_sym_literalString_repeat1];
   ACTIONS 10538 [anon_sym_SEMI]; ACTIONS 9986 [anon_sym_LBRACK]; ACTIONS 9988 [anon_sym_LPAREN];
   ACTIONS 9990 [aux_sym__literalString_token1]; ACTIONS 9992 [anon_sym_POUND];
   ACTIONS 9994 [aux_sym__literalInt_token1]; ACTIONS 9996 [aux_sym__literalInt_token2;
   aux_sym__literalInt_token3]; ACTIONS 9994 [aux_sym__literalFloat_token1];
   ACTIONS 9998 [sym_kAdd; sym_kSub]; ACTIONS 10000 [sym_kAt]; ACTIONS 10002 [sym_kTrue;
   sym_kFalse]; ACTIONS 10004 [sym_labelNumber]; ACTIONS 3 [sym__space];
   ACTIONS 5 [sym_ppDirective]; ACTIONS 3 [sym_comment]; ACTIONS 10002 [sym_ppFragmentExpr];
   ACTIONS 9990 [sym__literalStringMultiline]; ACTIONS 10006 [sym_identifier];
   ACTIONS 10008 [sym_kSpecialize]; ACTIONS 10422 [sym_kAsm]; ACTIONS 10424 [sym_kBegin];
   ACTIONS 10426 [sym_kCase]; ACTIONS 10016 [sym_kConst]; ACTIONS 10662 [sym_kElse];
   ACTIONS 10428 [sym_kFor]; ACTIONS 10020 [sym_kFunction]; ACTIONS 10430 [sym_kGoto];
   ACTIONS 10432 [sym_kIf]; ACTIONS 10026 [sym_kInherited]; ACTIONS 10002 [sym_kNil];
   ACTIONS 10000 [sym_kNot]; ACTIONS 10020 [sym_kProcedure]; ACTIONS 10434 [sym_kRaise];
   ACTIONS 10436 [sym_kRepeat]; ACTIONS 10032 [sym_kString]; ACTIONS 10438 [sym_kTry];
   ACTIONS 10036 [sym_kVar]; ACTIONS 10440 [sym_kWhile]; ACTIONS 10442 [sym_kWith]].

(** State 1178. *)
Definition ts_parse_table_1178 : parse_row :=
  [STATE 9071 [sym_if]; STATE 9109 [sym_ifElse; sym_while; sym_repeat; sym_for; sym_foreach;
   sym_try; sym_case; sym_block; sym_asm; sym_with; sym_raise; sym_statement; sym_goto;
   sym_labeledStatement; sym__statement]; STATE 15904 [sym_ifTr; sym_ifElseTr; sym_whileTr;
   sym_repeatTr; sym_forTr; sym_foreachTr; sym_tryTr; sym_caseTr]; STATE 15738 [sym_blockTr];
   STATE 15904 [sym_asmTr; sym_withTr; sym_raiseTr; sym_statementTr; sym_gotoTr;
   sym_labeledStatementTr; sym__statementTr]; STATE 13921 [sym_assignment];
   STATE 11905 [sym_varAssignDef]; STATE 13921 [sym_varDef; sym_constDef];
   STATE 1283 [sym_label]; STATE 8114 [sym__expr; sym_exprConditional]; STATE 7363 [sym__ref;
   sym_lambda; sym_inherited; sym_exprDot; sym_exprDeref; sym_exprAs; sym_exprTpl;
   sym_exprSubscript; sym_exprCall]; STATE 8114 [sym_exprBinary; sym_exprUnary];
   STATE 7363 [sym_exprParens; sym_exprBrackets; sym__literal; sym_literalString];
   STATE 6967 [sym__literalString; sym_literalChar]; STATE 7363 [sym_literalNumber];
   STATE 7660 [sym__literalInt; sym__literalFloat]; STATE 6967 [aux_sym_literalString_repeat1];
   ACTIONS 9330 [anon_sym_SEMI]; ACTIONS 9986 [anon_sym_LBRACK]; ACTIONS 9988 [anon_sym_LPAREN];
   ACTIONS 9990 [aux_sym__literalString_token1]; ACTIONS 9992 [anon_sym_POUND];
   ACTIONS 9994 [aux_sym__literalInt_token1]; ACTIONS 9996 [aux_sym__literalInt_token2;
   aux_sym__literalInt_token3]; ACTIONS 9994 [aux_sym__literalFloat_token1];
   ACTIONS 9998 [sym_kAdd; sym_kSub]; ACTIONS 10000 [sym_kAt]; ACTIONS 10002 [sym_kTrue;
   sym_kFalse]; ACTIONS 10004 [sym_labelNumber]; ACTIONS 3 [sym__space];
   ACTIONS 5 [sym_ppDirective]; ACTIONS 3 [sym_comment]; ACTIONS 10002 [sym_ppFragmentExpr];
   ACTIONS 9990 [sym__literalStringMultiline]; ACTIONS 10006 [sym_identifier];
   ACTIONS 10008 [sym_kSpecialize]; ACTIONS 10236 [sym_kAsm]; ACTIONS 10238 [sym_kBegin];
   ACTIONS 10240 [sym_kCase]; ACTIONS 10016 [sym_kConst]; ACTIONS 3290 [sym_kElse];
   ACTIONS 10244 [sym_kFor]; ACTIONS 10020 [sym_kFunction]; ACTIONS 10246 [sym_kGoto];
   ACTIONS 10248 [sym_kIf]; ACTIONS 10026 [sym_kInherited]; ACTIONS 10002 [sym_kNil];
   ACTIONS 10000 [sym_kNot]; ACTIONS 10020 [sym_kProcedure]; ACTIONS 10250 [sym_kRaise];
   ACTIONS 10252 [sym_kRepeat]; ACTIONS 10032 [sym_kString]; ACTIONS 10254 [sym_kTry];
   ACTIONS 10036 [sym_kVar]; ACTIONS 10256 [sym_kWhile]; ACTIONS 10258 [sym_kWith]].

(** State 1179. *)
Definition ts_parse_table_1179 : parse_row :=
  [STATE 12995 [sym_if]; STATE 15988 [sym_ifElse; sym_while; sym_repeat; sym_for; sym_foreach;
   sym_try; sym_case; sym_block; sym_asm; sym_with; sym_raise; sym_statement; sym_goto;
   sym_labeledStatement; sym__statement]; STATE 14348 [sym_ifTr; sym_ifElseTr; sym_whileTr;
   sym_repeatTr; sym_forTr; sym_foreachTr; sym_tryTr; sym_caseTr]; STATE 15738 [sym_blockTr];
   STATE 14348 [sym_asmTr; sym_withTr; sym_raiseTr; sym_statementTr; sym_gotoTr;
   sym_labeledStatementTr; sym__statementTr]; STATE 13505 [sym_assignment];
   STATE 11905 [sym_varAssignDef]; STATE 13505 [sym_varDef; sym_constDef];
   STATE 1233 [sym_label]; STATE 7978 [sym__expr; sym_exprConditional]; STATE 7363 [sym__ref;
   sym_lambda; sym_inherited; sym_exprDot; sym_exprDeref; sym_exprAs; sym_exprTpl;
   sym_exprSubscript; sym_exprCall]; STATE 7978 [sym_exprBinary; sym_exprUnary];
   STATE 7363 [sym_exprParens; sym_exprBrackets; sym__literal; sym_literalString];
   STATE 6967 [sym__literalString; sym_literalChar]; STATE 7363 [sym_literalNumber];
   STATE 7660 [sym__literalInt; sym__literalFloat]; STATE 6967 [aux_sym_literalString_repeat1];
   ACTIONS 10274 [anon_sym_SEMI]; ACTIONS 9986 [anon_sym_LBRACK]; ACTIONS 9988 [anon_sym_LPAREN];
   ACTIONS 9990 [aux_sym__literalString_token1]; ACTIONS 9992 [anon_sym_POUND];
   ACTIONS 9994 [aux_sym__literalInt_token1]; ACTIONS 9996 [aux_sym__literalInt_token2;
   aux_sym__literalInt_token3]; ACTIONS 9994 [aux_sym__literalFloat_token1];
   ACTIONS 9998 [sym_kAdd; sym_kSub]; ACTIONS 10000 [sym_kAt]; ACTIONS 10002 [sym_kTrue;
   sym_kFalse]; ACTIONS 10004 [sym_labelNumber]; ACTIONS 3 [sym__space];
   ACTIONS 5 [sym_ppDirective]; ACTIONS 3 [sym_comment]; ACTIONS 10002 [sym_ppFragmentExpr];
   ACTIONS 9990 [sym__literalStringMultiline]; ACTIONS 10006 [sym_identifier];
   ACTIONS 10008 [sym_kSpecialize]; ACTIONS 10276 [sym_kAsm]; ACTIONS 10278 [sym_kBegin];
   ACTIONS 10280 [sym_kCase]; ACTIONS 10016 [sym_kConst]; ACTIONS 10664 [sym_kElse];
   ACTIONS 10282 [sym_kFor]; ACTIONS 10020 [sym_kFunction]; ACTIONS 10284 [sym_kGoto];
   ACTIONS 10286 [sym_kIf]; ACTIONS 10026 [sym_kInherited]; ACTIONS 10002 [sym_kNil];
   ACTIONS 10000 [sym_kNot]; ACTIONS 10020 [sym_kProcedure]; ACTIONS 10288 [sym_kRaise];
   ACTIONS 10290 [sym_kRepeat]; ACTIONS 10032 [sym_kString]; ACTIONS 10292 [sym_kTry];
   ACTIONS 10036 [sym_kVar]; ACTIONS 10294 [sym_kWhile]; ACTIONS 10296 [sym_kWith]].

(** State 1180. *)
Definition ts_parse_table_1180 : parse_row :=
  [STATE 9071 [sym_if]; STATE 9117 [sym_ifElse; sym_while; sym_repeat; sym_for; sym_foreach;
   sym_try; sym_case; sym_block; sym_asm; sym_with; sym_raise; sym_statement; sym_goto;
   sym_labeledStatement; sym__statement]; STATE 15932 [sym_ifTr; sym_ifElseTr; sym_whileTr;
   sym_repeatTr; sym_forTr; sym_foreachTr; sym_tryTr; sym_caseTr]; STATE 15738 [sym_blockTr];
   STATE 15932 [sym_asmTr; sym_withTr; sym_raiseTr; sym_statementTr; sym_gotoTr;
   sym_labeledStatementTr; sym__statementTr]; STATE 13921 [sym_assignment];
   STATE 11905 [sym_varAssignDef]; STATE 13921 [sym_varDef; sym_constDef];
   STATE 1283 [sym_label]; STATE 8114 [sym__expr; sym_exprConditional]; STATE 7363 [sym__ref;
   sym_lambda; sym_inherited; sym_exprDot; sym_exprDeref; sym_exprAs; sym_exprTpl;
   sym_exprSubscript; sym_exprCall]; STATE 8114 [sym_exprBinary; sym_exprUnary];
   STATE 7363 [sym_exprParens; sym_exprBrackets; sym__literal; sym_literalString];
   STATE 6967 [sym__literalString; sym_literalChar]; STATE 7363 [sym_literalNumber];
   STATE 7660 [sym__literalInt; sym__literalFloat]; STATE 6967 [aux_sym_literalString_repeat1];
   ACTIONS 9332 [anon_sym_SEMI]; ACTIONS 9986 [anon_sym_LBRACK]; ACTIONS 9988 [anon_sym_LPAREN];
   ACTIONS 9990 [aux_sym__literalString_token1]; ACTIONS 9992 [anon_sym_POUND];
   ACTIONS 9994 [aux_sym__literalInt_token1]; ACTIONS 9996 [aux_sym__literalInt_token2;
   aux_sym__literalInt_token3]; ACTIONS 9994 [aux_sym__literalFloat_token1];
   ACTIONS 9998 [sym_kAdd; sym_kSub]; ACTIONS 10000 [sym_kAt]; ACTIONS 10002 [sym_kTrue;
   sym_kFalse]; ACTIONS 10004 [sym_labelNumber]; ACTIONS 3 [sym__space];
   ACTIONS 5 [sym_ppDirective]; ACTIONS 3 [sym_comment]; ACTIONS 10002 [sym_ppFragmentExpr];
   ACTIONS 9990 [sym__literalStringMultiline]; ACTIONS 10006 [sym_identifier];
   ACTIONS 10008 [sym_kSpecialize]; ACTIONS 10236 [sym_kAsm]; ACTIONS 10238 [sym_kBegin];
   ACTIONS 10240 [sym_kCase]; ACTIONS 10016 [sym_kConst]; ACTIONS 3296 [sym_kElse];
   ACTIONS 10244 [sym_kFor]; ACTIONS 10020 [sym_kFunction]; ACTIONS 10246 [sym_kGoto];
   ACTIONS 10248 [sym_kIf]; ACTIONS 10026 [sym_kInherited]; ACTIONS 10002 [sym_kNil];
   ACTIONS 10000 [sym_kNot]; ACTIONS 10020 [sym_kProcedure]; ACTIONS 10250 [sym_kRaise];
   ACTIONS 10252 [sym_kRepeat]; ACTIONS 10032 [sym_kString]; ACTIONS 10254 [sym_kTry];
   ACTIONS 10036 [sym_kVar]; ACTIONS 10256 [sym_kWhile]; ACTIONS 10258 [sym_kWith]].

(** State 1181. *)
Definition ts_parse_table_1181 : parse_row :=
  [STATE 6412 [sym_if]; STATE 6384 [sym_ifElse; sym_while; sym_repeat; sym_for; sym_foreach;
   sym_try; sym_case; sym_block; sym_asm; sym_with; sym_raise; sym_statement; sym_goto;
   sym_labeledStatement; sym__statement]; STATE 14711 [sym_ifTr; sym_ifElseTr; sym_whileTr;
   sym_repeatTr; sym_forTr; sym_foreachTr; sym_tryTr; sym_caseTr]; STATE 15738 [sym_blockTr];
   STATE 14711 [sym_asmTr; sym_withTr; sym_raiseTr; sym_statementTr; sym_gotoTr;
   sym_labeledStatementTr; sym__statementTr]; STATE 13152 [sym_assignment];
   STATE 11905 [sym_varAssignDef]; STATE 13152 [sym_varDef; sym_constDef];
   STATE 1267 [sym_label]; STATE 7993 [sym__expr; sym_exprConditional]; STATE 7363 [sym__ref;
   sym_lambda; sym_inherited; sym_exprDot; sym_exprDeref; sym_exprAs; sym_exprTpl;
   sym_exprSubscript; sym_exprCall]; STATE 7993 [sym_exprBinary; sym_exprUnary];
   STATE 7363 [sym_exprParens; sym_exprBrackets; sym__literal; sym_literalString];
   STATE 6967 [sym__literalString; sym_literalChar]; STATE 7363 [sym_literalNumber];
   STATE 7660 [sym__literalInt; sym__literalFloat]; STATE 6967 [aux_sym_literalString_repeat1];
   ACTIONS 10408 [anon_sym_SEMI]; ACTIONS 9986 [anon_sym_LBRACK]; ACTIONS 9988 [anon_sym_LPAREN];
   ACTIONS 9990 [aux_sym__literalString_token1]; ACTIONS 9992 [anon_sym_POUND];
   ACTIONS 9994 [aux_sym__literalInt_token1]; ACTIONS 9996 [aux_sym__literalInt_token2;
   aux_sym__literalInt_token3]; ACTIONS 9994 [aux_sym__literalFloat_token1];
   ACTIONS 9998 [sym_kAdd; sym_kSub]; ACTIONS 10000 [sym_kAt]; ACTIONS 10002 [sym_kTrue;
   sym_kFalse]; ACTIONS 10004 [sym_labelNumber]; ACTIONS 3 [sym__space];
   ACTIONS 5 [sym_ppDirective]; ACTIONS 3 [sym_comment]; ACTIONS 10002 [sym_ppFragmentExpr];
   ACTIONS 9990 [sym__literalStringMultiline]; ACTIONS 10006 [sym_identifier];
   ACTIONS 10008 [sym_kSpecialize]; ACTIONS 10136 [sym_kAsm]; ACTIONS 10138 [sym_kBegin];
   ACTIONS 10140 [sym_kCase]; ACTIONS 10016 [sym_kConst]; ACTIONS 10092 [sym_kElse];
   ACTIONS 10142 [sym_kFor]; ACTIONS 10020 [sym_kFunction]; ACTIONS 10144 [sym_kGoto];
   ACTIONS 10146 [sym_kIf]; ACTIONS 10026 [sym_kInherited]; ACTIONS 10002 [sym_kNil];
   ACTIONS 10000 [sym_kNot]; ACTIONS 10020 [sym_kProcedure]; ACTIONS 10148 [sym_kRaise];
   ACTIONS 10150 [sym_kRepeat]; ACTIONS 10032 [sym_kString]; ACTIONS 10152 [sym_kTry];
   ACTIONS 10036 [sym_kVar]; ACTIONS 10154 [sym_kWhile]; ACTIONS 10156 [sym_kWith]].

(** State 1182. *)
Definition ts_parse_table_1182 : parse_row :=
  [STATE 9071 [sym_if]; STATE 9121 [sym_ifElse; sym_while; sym_repeat; sym_for; sym_foreach;
   sym_try; sym_case; sym_block; sym_asm; sym_with; sym_raise; sym_statement; sym_goto;
   sym_labeledStatement; sym__statement]; STATE 15995 [sym_ifTr; sym_ifElseTr; sym_whileTr;
   sym_repeatTr; sym_forTr; sym_foreachTr; sym_tryTr; sym_caseTr]; STATE 15738 [sym_blockTr];
   STATE 15995 [sym_asmTr; sym_withTr; sym_raiseTr; sym_statementTr; sym_gotoTr;
   sym_labeledStatementTr; sym__statementTr]; STATE 13921 [sym_assignment];
   STATE 11905 [sym_varAssignDef]; STATE 13921 [sym_varDef; sym_constDef];
   STATE 1283 [sym_label]; STATE 8114 [sym__expr; sym_exprConditional]; STATE 7363 [sym__ref;
   sym_lambda; sym_inherited; sym_exprDot; sym_exprDeref; sym_exprAs; sym_exprTpl;
   sym_exprSubscript; sym_exprCall]; STATE 8114 [sym_exprBinary; sym_exprUnary];
   STATE 7363 [sym_exprParens; sym_exprBrackets; sym__literal; sym_literalString];
   STATE 6967 [sym__literalString; sym_literalChar]; STATE 7363 [sym_literalNumber];
   STATE 7660 [sym__literalInt; sym__literalFloat]; STATE 6967 [aux_sym_literalString_repeat1];
   ACTIONS 9334 [anon_sym_SEMI]; ACTIONS 9986 [anon_sym_LBRACK]; ACTIONS 9988 [anon_sym_LPAREN];
   ACTIONS 9990 [aux_sym__literalString_token1]; ACTIONS 9992 [anon_sym_POUND];
   ACTIONS 9994 [aux_sym__literalInt_token1]; ACTIONS 9996 [aux_sym__literalInt_token2;
   aux_sym__literalInt_token3]; ACTIONS 9994 [aux_sym__literalFloat_token1];
   ACTIONS 9998 [sym_kAdd; sym_kSub]; ACTIONS 10000 [sym_kAt]; ACTIONS 10002 [sym_kTrue;
   sym_kFalse]; ACTIONS 10004 [sym_labelNumber]; ACTIONS 3 [sym__space];
   ACTIONS 5 [sym_ppDirective]; ACTIONS 3 [sym_comment]; ACTIONS 10002 [sym_ppFragmentExpr];
   ACTIONS 9990 [sym__literalStringMultiline]; ACTIONS 10006 [sym_identifier];
   ACTIONS 10008 [sym_kSpecialize]; ACTIONS 10236 [sym_kAsm]; ACTIONS 10238 [sym_kBegin];
   ACTIONS 10240 [sym_kCase]; ACTIONS 10016 [sym_kConst]; ACTIONS 3304 [sym_kElse];
   ACTIONS 10244 [sym_kFor]; ACTIONS 10020 [sym_kFunction]; ACTIONS 10246 [sym_kGoto];
   ACTIONS 10248 [sym_kIf]; ACTIONS 10026 [sym_kInherited]; ACTIONS 10002 [sym_kNil];
   ACTIONS 10000 [sym_kNot]; ACTIONS 10020 [sym_kProcedure]; ACTIONS 10250 [sym_kRaise];
   ACTIONS 10252 [sym_kRepeat]; ACTIONS 10032 [sym_kString]; ACTIONS 10254 [sym_kTry];
   ACTIONS 10036 [sym_kVar]; ACTIONS 10256 [sym_kWhile]; ACTIONS 10258 [sym_kWith]].

(** State 1183. *)
Definition ts_parse_table_1183 : parse_row :=
  [STATE 6451 [sym_if]; STATE 6369 [sym_ifElse; sym_while; sym_repeat; sym_for; sym_foreach;
   sym_try; sym_case; sym_block; sym_asm; sym_with; sym_raise; sym_statement; sym_goto;
   sym_labeledStatement; sym__statement]; STATE 15874 [sym_ifTr; sym_ifElseTr; sym_whileTr;
   sym_repeatTr; sym_forTr; sym_foreachTr; sym_tryTr; sym_caseTr]; STATE 15738 [sym_blockTr];
   STATE 15874 [sym_asmTr; sym_withTr; sym_raiseTr; sym_statementTr; sym_gotoTr;
   sym_labeledStatementTr; sym__statementTr]; STATE 13614 [sym_assignment];
   STATE 11905 [sym_varAssignDef]; STATE 13614 [sym_varDef; sym_constDef];
   STATE 1280 [sym_label]; STATE 8032 [sym__expr; sym_exprConditional]; STATE 7363 [sym__ref;
   sym_lambda; sym_inherited; sym_exprDot; sym_exprDeref; sym_exprAs; sym_exprTpl;
   sym_exprSubscript; sym_exprCall]; STATE 8032 [sym_exprBinary; sym_exprUnary];
   STATE 7363 [sym_exprParens; sym_exprBrackets; sym__literal; sym_literalString];
   STATE 6967 [sym__literalString; sym_literalChar]; STATE 7363 [sym_literalNumber];
   STATE 7660 [sym__literalInt; sym__literalFloat]; STATE 6967 [aux_sym_literalString_repeat1];
   ACTIONS 10666 [anon_sym_SEMI]; ACTIONS 9986 [anon_sym_LBRACK]; ACTIONS 9988 [anon_sym_LPAREN];
   ACTIONS 9990 [aux_sym__literalString_token1]; ACTIONS 9992 [anon_sym_POUND];
   ACTIONS 9994 [aux_sym__literalInt_token1]; ACTIONS 9996 [aux_sym__literalInt_token2;
   aux_sym__literalInt_token3]; ACTIONS 9994 [aux_sym__literalFloat_token1];
   ACTIONS 9998 [sym_kAdd; sym_kSub]; ACTIONS 10000 [sym_kAt]; ACTIONS 10002 [sym_kTrue;
   sym_kFalse]; ACTIONS 10004 [sym_labelNumber]; ACTIONS 3 [sym__space];
   ACTIONS 5 [sym_ppDirective]; ACTIONS 3 [sym_comment]; ACTIONS 10002 [sym_ppFragmentExpr];
   ACTIONS 9990 [sym__literalStringMultiline]; ACTIONS 10006 [sym_identifier];
   ACTIONS 10008 [sym_kSpecialize]; ACTIONS 10010 [sym_kAsm]; ACTIONS 10012 [sym_kBegin];
   ACTIONS 10014 [sym_kCase]; ACTIONS 10016 [sym_kConst]; ACTIONS 3272 [sym_kElse];
   ACTIONS 10018 [sym_kFor]; ACTIONS 10020 [sym_kFunction]; ACTIONS 10022 [sym_kGoto];
   ACTIONS 10024 [sym_kIf]; ACTIONS 10026 [sym_kInherited]; ACTIONS 10002 [sym_kNil];
   ACTIONS 10000 [sym_kNot]; ACTIONS 10020 [sym_kProcedure]; ACTIONS 10028 [sym_kRaise];
   ACTIONS 10030 [sym_kRepeat]; ACTIONS 10032 [sym_kString]; ACTIONS 10034 [sym_kTry];
   ACTIONS 10036 [sym_kVar]; ACTIONS 10038 [sym_kWhile]; ACTIONS 10040 [sym_kWith]].

(** State 1184. *)
Definition ts_parse_table_1184 : parse_row :=
  [STATE 6451 [sym_if]; STATE 6382 [sym_ifElse; sym_while; sym_repeat; sym_for; sym_foreach;
   sym_try; sym_case; sym_block; sym_asm; sym_with; sym_raise; sym_statement; sym_goto;
   sym_labeledStatement; sym__statement]; STATE 15916 [sym_ifTr; sym_ifElseTr; sym_whileTr;
   sym_repeatTr; sym_forTr; sym_foreachTr; sym_tryTr; sym_caseTr]; STATE 15738 [sym_blockTr];
   STATE 15916 [sym_asmTr; sym_withTr; sym_raiseTr; sym_statementTr; sym_gotoTr;
   sym_labeledStatementTr; sym__statementTr]; STATE 13614 [sym_assignment];
   STATE 11905 [sym_varAssignDef]; STATE 13614 [sym_varDef; sym_constDef];
   STATE 1280 [sym_label]; STATE 8032 [sym__expr; sym_exprConditional]; STATE 7363 [sym__ref;
   sym_lambda; sym_inherited; sym_exprDot; sym_exprDeref; sym_exprAs; sym_exprTpl;
   sym_exprSubscript; sym_exprCall]; STATE 8032 [sym_exprBinary; sym_exprUnary];
   STATE 7363 [sym_exprParens; sym_exprBrackets; sym__literal; sym_literalString];
   STATE 6967 [sym__literalString; sym_literalChar]; STATE 7363 [sym_literalNumber];
   STATE 7660 [sym__literalInt; sym__literalFloat]; STATE 6967 [aux_sym_literalString_repeat1];
   ACTIONS 10668 [anon_sym_SEMI]; ACTIONS 9986 [anon_sym_LBRACK]; ACTIONS 9988 [anon_sym_LPAREN];
   ACTIONS 9990 [aux_sym__literalString_token1]; ACTIONS 9992 [anon_sym_POUND];
   ACTIONS 9994 [aux_sym__literalInt_token1]; ACTIONS 9996 [aux_sym__literalInt_token2;
   aux_sym__literalInt_token3]; ACTIONS 9994 [aux_sym__literalFloat_token1];
   ACTIONS 9998 [sym_kAdd; sym_kSub]; ACTIONS 10000 [sym_kAt]; ACTIONS 10002 [sym_kTrue;
   sym_kFalse]; ACTIONS 10004 [sym_labelNumber]; ACTIONS 3 [sym__space];
   ACTIONS 5 [sym_ppDirective]; ACTIONS 3 [sym_comment]; ACTIONS 10002 [sym_ppFragmentExpr];
   ACTIONS 9990 [sym__literalStringMultiline]; ACTIONS 10006 [sym_identifier];
   ACTIONS 10008 [sym_kSpecialize]; ACTIONS 10010 [sym_kAsm]; ACTIONS 10012 [sym_kBegin];
   ACTIONS 10014 [sym_kCase]; ACTIONS 10016 [sym_kConst]; ACTIONS 3278 [sym_kElse];
   ACTIONS 10018 [sym_kFor]; ACTIONS 10020 [sym_kFunction]; ACTIONS 10022 [sym_kGoto];
   ACTIONS 10024 [sym_kIf]; ACTIONS 10026 [sym_kInherited]; ACTIONS 10002 [sym_kNil];
   ACTIONS 10000 [sym_kNot]; ACTIONS 10020 [sym_kProcedure]; ACTIONS 10028 [sym_kRaise];
   ACTIONS 10030 [sym_kRepeat]; ACTIONS 10032 [sym_kString]; ACTIONS 10034 [sym_kTry];
   ACTIONS 10036 [sym_kVar]; ACTIONS 10038 [sym_kWhile]; ACTIONS 10040 [sym_kWith]].

(** State 1185. *)
Definition ts_parse_table_1185 : parse_row :=
  [STATE 6213 [sym_if]; STATE 6217 [sym_ifElse; sym_while; sym_repeat; sym_for; sym_foreach;
   sym_try; sym_case; sym_block; sym_asm; sym_with; sym_raise; sym_statement; sym_goto;
   sym_labeledStatement; sym__statement]; STATE 15352 [sym_ifTr; sym_ifElseTr; sym_whileTr;
   sym_repeatTr; sym_forTr; sym_foreachTr; sym_tryTr; sym_caseTr]; STATE 14251 [sym_blockTr];
   STATE 15352 [sym_asmTr; sym_withTr; sym_raiseTr; sym_statementTr; sym_gotoTr;
   sym_labeledStatementTr; sym__statementTr]; STATE 13915 [sym_assignment];
   STATE 11785 [sym_varAssignDef]; STATE 13915 [sym_varDef; sym_constDef];
   STATE 1213 [sym_label]; STATE 8019 [sym__expr; sym_exprConditional]; STATE 7478 [sym__ref;
   sym_lambda; sym_inherited; sym_exprDot; sym_exprDeref; sym_exprAs; sym_exprTpl;
   sym_exprSubscript; sym_exprCall]; STATE 8019 [sym_exprBinary; sym_exprUnary];
   STATE 7478 [sym_exprParens; sym_exprBrackets; sym__literal; sym_literalString];
   STATE 6664 [sym__literalString; sym_literalChar]; STATE 7478 [sym_literalNumber];
   STATE 7742 [sym__literalInt; sym__literalFloat]; STATE 6664 [aux_sym_literalString_repeat1];
   ACTIONS 9914 [anon_sym_SEMI]; ACTIONS 399 [anon_sym_LBRACK]; ACTIONS 401 [anon_sym_LPAREN];
   ACTIONS 403 [aux_sym__literalString_token1]; ACTIONS 405 [anon_sym_POUND];
   ACTIONS 407 [aux_sym__literalInt_token1]; ACTIONS 409 [aux_sym__literalInt_token2;
   aux_sym__literalInt_token3]; ACTIONS 407 [aux_sym__literalFloat_token1];
   ACTIONS 413 [sym_kAdd; sym_kSub]; ACTIONS 415 [sym_kAt]; ACTIONS 417 [sym_kTrue; sym_kFalse];
   ACTIONS 10098 [sym_labelNumber]; ACTIONS 3 [sym__space]; ACTIONS 5 [sym_ppDirective];
   ACTIONS 3 [sym_comment]; ACTIONS 417 [sym_ppFragmentExpr];
   ACTIONS 403 [sym__literalStringMultiline]; ACTIONS 10100 [sym_identifier];
   ACTIONS 423 [sym_kSpecialize]; ACTIONS 427 [sym_kAsm]; ACTIONS 429 [sym_kBegin];
   ACTIONS 431 [sym_kCase]; ACTIONS 433 [sym_kConst]; ACTIONS 3272 [sym_kEnd];
   ACTIONS 437 [sym_kFor]; ACTIONS 439 [sym_kFunction]; ACTIONS 441 [sym_kGoto];
   ACTIONS 443 [sym_kIf]; ACTIONS 445 [sym_kInherited]; ACTIONS 417 [sym_kNil];
   ACTIONS 415 [sym_kNot]; ACTIONS 439 [sym_kProcedure]; ACTIONS 447 [sym_kRaise];
   ACTIONS 449 [sym_kRepeat]; ACTIONS 451 [sym_kString]; ACTIONS 453 [sym_kTry];
   ACTIONS 455 [sym_kVar]; ACTIONS 457 [sym_kWhile]; ACTIONS 459 [sym_kWith]].

(** State 1186. *)
Definition ts_parse_table_1186 : parse_row :=
  [STATE 6113 [sym_if]; STATE 6136 [sym_ifElse; sym_while; sym_repeat; sym_for; sym_foreach;
   sym_try; sym_case; sym_block; sym_asm; sym_with; sym_raise; sym_statement; sym_goto;
   sym__statement]; STATE 13777 [sym_ifTr; sym_ifElseTr; sym_whileTr; sym_repeatTr; sym_forTr;
   sym_foreachTr; sym_tryTr; sym_caseTr]; STATE 13296 [sym_blockTr]; STATE 13777 [sym_asmTr;
   sym_withTr; sym_raiseTr; sym_statementTr; sym_gotoTr; sym__statementTr];
   STATE 12733 [sym_assignment]; STATE 11883 [sym_varAssignDef]; STATE 12733 [sym_varDef;
   sym_constDef]; STATE 1191 [sym_label]; STATE 7784 [sym__expr; sym_exprConditional];
   STATE 7341 [sym__ref; sym_lambda; sym_inherited; sym_exprDot; sym_exprDeref; sym_exprAs;
   sym_exprTpl; sym_exprSubscript; sym_exprCall]; STATE 7784 [sym_exprBinary; sym_exprUnary];
   STATE 7341 [sym_exprParens; sym_exprBrackets; sym__literal; sym_literalString];
   STATE 6534 [sym__literalString; sym_literalChar]; STATE 7341 [sym_literalNumber];
   STATE 7552 [sym__literalInt; sym__literalFloat];
   STATE 1191 [aux_sym_labeledStatement_repeat1]; STATE 6534 [aux_sym_literalString_repeat1];
   ACTIONS 10670 [anon_sym_SEMI]; ACTIONS 9634 [anon_sym_LBRACK]; ACTIONS 9636 [anon_sym_LPAREN];
   ACTIONS 9638 [aux_sym__literalString_token1]; ACTIONS 9640 [anon_sym_POUND];
   ACTIONS 9642 [aux_sym__literalInt_token1]; ACTIONS 9644 [aux_sym__literalInt_token2;
   aux_sym__literalInt_token3]; ACTIONS 9642 [aux_sym__literalFloat_token1];
   ACTIONS 9646 [sym_kAdd; sym_kSub]; ACTIONS 9648 [sym_kAt]; ACTIONS 9650 [sym_kTrue;
   sym_kFalse]; ACTIONS 9652 [sym_labelNumber]; ACTIONS 3 [sym__space];
   ACTIONS 5 [sym_ppDirective]; ACTIONS 3 [sym_comment]; ACTIONS 9650 [sym_ppFragmentExpr];
   ACTIONS 9638 [sym__literalStringMultiline]; ACTIONS 9654 [sym_identifier];
   ACTIONS 9656 [sym_kSpecialize]; ACTIONS 9658 [sym_kAsm]; ACTIONS 9660 [sym_kBegin];
   ACTIONS 9662 [sym_kCase]; ACTIONS 9664 [sym_kConst]; ACTIONS 4301 [sym_kElse; sym_kEnd];
   ACTIONS 9666 [sym_kFor]; ACTIONS 9668 [sym_kFunction]; ACTIONS 9670 [sym_kGoto];
   ACTIONS 9672 [sym_kIf]; ACTIONS 9674 [sym_kInherited]; ACTIONS 9650 [sym_kNil];
   ACTIONS 9648 [sym_kNot]; ACTIONS 9668 [sym_kProcedure]; ACTIONS 9676 [sym_kRaise];
   ACTIONS 9678 [sym_kRepeat]; ACTIONS 9680 [sym_kString]; ACTIONS 9682 [sym_kTry];
   ACTIONS 9684 [sym_kVar]; ACTIONS 9686 [sym_kWhile]; ACTIONS 9688 [sym_kWith]].

(** State 1187. *)
Definition ts_parse_table_1187 : parse_row :=
  [STATE 6451 [sym_if]; STATE 6396 [sym_ifElse; sym_while; sym_repeat; sym_for; sym_foreach;
   sym_try; sym_case; sym_block; sym_asm; sym_with; sym_raise; sym_statement; sym_goto];
   STATE 6392 [sym_labeledStatement]; STATE 6396 [sym__statement]; STATE 14171 [sym_ifTr;
   sym_ifElseTr; sym_whileTr; sym_repeatTr; sym_forTr; sym_foreachTr; sym_tryTr; sym_caseTr];
   STATE 15738 [sym_blockTr]; STATE 14171 [sym_asmTr; sym_withTr; sym_raiseTr; sym_statementTr;
   sym_gotoTr]; STATE 14168 [sym_labeledStatementTr]; STATE 14171 [sym__statementTr];
   STATE 13614 [sym_assignment]; STATE 11905 [sym_varAssignDef]; STATE 13614 [sym_varDef;
   sym_constDef]; STATE 1280 [sym_label]; STATE 8032 [sym__expr; sym_exprConditional];
   STATE 7363 [sym__ref; sym_lambda; sym_inherited; sym_exprDot; sym_exprDeref; sym_exprAs;
   sym_exprTpl; sym_exprSubscript; sym_exprCall]; STATE 8032 [sym_exprBinary; sym_exprUnary];
   STATE 7363 [sym_exprParens; sym_exprBrackets; sym__literal; sym_literalString];
   STATE 6967 [sym__literalString; sym_literalChar]; STATE 7363 [sym_literalNumber];
   STATE 7660 [sym__literalInt; sym__literalFloat]; STATE 6967 [aux_sym_literalString_repeat1];
   ACTIONS 10672 [anon_sym_SEMI]; ACTIONS 9986 [anon_sym_LBRACK]; ACTIONS 9988 [anon_sym_LPAREN];
   ACTIONS 9990 [aux_sym__literalString_token1]; ACTIONS 9992 [anon_sym_POUND];
   ACTIONS 9994 [aux_sym__literalInt_token1]; ACTIONS 9996 [aux_sym__literalInt_token2;
   aux_sym__literalInt_token3]; ACTIONS 9994 [aux_sym__literalFloat_token1];
   ACTIONS 9998 [sym_kAdd; sym_kSub]; ACTIONS 10000 [sym_kAt]; ACTIONS 10002 [sym_kTrue;
   sym_kFalse]; ACTIONS 10004 [sym_labelNumber]; ACTIONS 3 [sym__space];
   ACTIONS 5 [sym_ppDirective]; ACTIONS 3 [sym_comment]; ACTIONS 10002 [sym_ppFragmentExpr];
   ACTIONS 9990 [sym__literalStringMultiline]; ACTIONS 10006 [sym_identifier];
   ACTIONS 10008 [sym_kSpecialize]; ACTIONS 10010 [sym_kAsm]; ACTIONS 10012 [sym_kBegin];
   ACTIONS 10014 [sym_kCase]; ACTIONS 10016 [sym_kConst]; ACTIONS 3286 [sym_kElse];
   ACTIONS 10018 [sym_kFor]; ACTIONS 10020 [sym_kFunction]; ACTIONS 10022 [sym_kGoto];
   ACTIONS 10024 [sym_kIf]; ACTIONS 10026 [sym_kInherited]; ACTIONS 10002 [sym_kNil];
   ACTIONS 10000 [sym_kNot]; ACTIONS 10020 [sym_kProcedure]; ACTIONS 10028 [sym_kRaise];
   ACTIONS 10030 [sym_kRepeat]; ACTIONS 10032 [sym_kString]; ACTIONS 10034 [sym_kTry];
   ACTIONS 10036 [sym_kVar]; ACTIONS 10038 [sym_kWhile]; ACTIONS 10040 [sym_kWith]].

(** State 1188. *)
Definition ts_parse_table_1188 : parse_row :=
  [STATE 6451 [sym_if]; STATE 6420 [sym_ifElse; sym_while; sym_repeat; sym_for; sym_foreach;
   sym_try; sym_case; sym_block; sym_asm; sym_with; sym_raise; sym_statement; sym_goto;
   sym_labeledStatement; sym__statement]; STATE 15904 [sym_ifTr; sym_ifElseTr; sym_whileTr;
   sym_repeatTr; sym_forTr; sym_foreachTr; sym_tryTr; sym_caseTr]; STATE 15738 [sym_blockTr];
   STATE 15904 [sym_asmTr; sym_withTr; sym_raiseTr; sym_statementTr; sym_gotoTr;
   sym_labeledStatementTr; sym__statementTr]; STATE 13614 [sym_assignment];
   STATE 11905 [sym_varAssignDef]; STATE 13614 [sym_varDef; sym_constDef];
   STATE 1280 [sym_label]; STATE 8032 [sym__expr; sym_exprConditional]; STATE 7363 [sym__ref;
   sym_lambda; sym_inherited; sym_exprDot; sym_exprDeref; sym_exprAs; sym_exprTpl;
   sym_exprSubscript; sym_exprCall]; STATE 8032 [sym_exprBinary; sym_exprUnary];
   STATE 7363 [sym_exprParens; sym_exprBrackets; sym__literal; sym_literalString];
   STATE 6967 [sym__literalString; sym_literalChar]; STATE 7363 [sym_literalNumber];
   STATE 7660 [sym__literalInt; sym__literalFloat]; STATE 6967 [aux_sym_literalString_repeat1];
   ACTIONS 10674 [anon_sym_SEMI]; ACTIONS 9986 [anon_sym_LBRACK]; ACTIONS 9988 [anon_sym_LPAREN];
   ACTIONS 9990 [aux_sym__literalString_token1]; ACTIONS 9992 [anon_sym_POUND];
   ACTIONS 9994 [aux_sym__literalInt_token1]; ACTIONS 9996 [aux_sym__literalInt_token2;
   aux_sym__literalInt_token3]; ACTIONS 9994 [aux_sym__literalFloat_token1];
   ACTIONS 9998 [sym_kAdd; sym_kSub]; ACTIONS 10000 [sym_kAt]; ACTIONS 10002 [sym_kTrue;
   sym_kFalse]; ACTIONS 10004 [sym_labelNumber]; ACTIONS 3 [sym__space];
   ACTIONS 5 [sym_ppDirective]; ACTIONS 3 [sym_comment]; ACTIONS 10002 [sym_ppFragmentExpr];
   ACTIONS 9990 [sym__literalStringMultiline]; ACTIONS 10006 [sym_identifier];
   ACTIONS 10008 [sym_kSpecialize]; ACTIONS 10010 [sym_kAsm]; ACTIONS 10012 [sym_kBegin];
   ACTIONS 10014 [sym_kCase]; ACTIONS 10016 [sym_kConst]; ACTIONS 3290 [sym_kElse];
   ACTIONS 10018 [sym_kFor]; ACTIONS 10020 [sym_kFunction]; ACTIONS 10022 [sym_kGoto];
   ACTIONS 10024 [sym_kIf]; ACTIONS 10026 [sym_kInherited]; ACTIONS 10002 [sym_kNil];
   ACTIONS 10000 [sym_kNot]; ACTIONS 10020 [sym_kProcedure]; ACTIONS 10028 [sym_kRaise];
   ACTIONS 10030 [sym_kRepeat]; ACTIONS 10032 [sym_kString]; ACTIONS 10034 [sym_kTry];
   ACTIONS 10036 [sym_kVar]; ACTIONS 10038 [sym_kWhile]; ACTIONS 10040 [sym_kWith]].

(** State 1189. *)
Definition ts_parse_table_1189 : parse_row :=
  [STATE 6451 [sym_if]; STATE 6422 [sym_ifElse; sym_while; sym_repeat; sym_for; sym_foreach;
   sym_try; sym_case; sym_block; sym_asm; sym_with; sym_raise; sym_statement; sym_goto;
   sym_labeledStatement; sym__statement]; STATE 15932 [sym_ifTr; sym_ifElseTr; sym_whileTr;
   sym_repeatTr; sym_forTr; sym_foreachTr; sym_tryTr; sym_caseTr]; STATE 15738 [sym_blockTr];
   STATE 15932 [sym_asmTr; sym_withTr; sym_raiseTr; sym_statementTr; sym_gotoTr;
   sym_labeledStatementTr; sym__statementTr]; STATE 13614 [sym_assignment];
   STATE 11905 [sym_varAssignDef]; STATE 13614 [sym_varDef; sym_constDef];
   STATE 1280 [sym_label]; STATE 8032 [sym__expr; sym_exprConditional]; STATE 7363 [sym__ref;
   sym_lambda; sym_inherited; sym_exprDot; sym_exprDeref; sym_exprAs; sym_exprTpl;
   sym_exprSubscript; sym_exprCall]; STATE 8032 [sym_exprBinary; sym_exprUnary];
   STATE 7363 [sym_exprParens; sym_exprBrackets; sym__literal; sym_literalString];
   STATE 6967 [sym__literalString; sym_literalChar]; STATE 7363 [sym_literalNumber];
   STATE 7660 [sym__literalInt; sym__literalFloat]; STATE 6967 [aux_sym_literalString_repeat1];
   ACTIONS 10676 [anon_sym_SEMI]; ACTIONS 9986 [anon_sym_LBRACK]; ACTIONS 9988 [anon_sym_LPAREN];
   ACTIONS 9990 [aux_sym__literalString_token1]; ACTIONS 9992 [anon_sym_POUND];
   ACTIONS 9994 [aux_sym__literalInt_token1]; ACTIONS 9996 [aux_sym__literalInt_token2;
   aux_sym__literalInt_token3]; ACTIONS 9994 [aux_sym__literalFloat_token1];
   ACTIONS 9998 [sym_kAdd; sym_kSub]; ACTIONS 10000 [sym_kAt]; ACTIONS 10002 [sym_kTrue;
   sym_kFalse]; ACTIONS 10004 [sym_labelNumber]; ACTIONS 3 [sym__space];
   ACTIONS 5 [sym_ppDirective]; ACTIONS 3 [sym_comment]; ACTIONS 10002 [sym_ppFragmentExpr];
   ACTIONS 9990 [sym__literalStringMultiline]; ACTIONS 10006 [sym_identifier];
   ACTIONS 10008 [sym_kSpecialize]; ACTIONS 10010 [sym_kAsm]; ACTIONS 10012 [sym_kBegin];
   ACTIONS 10014 [sym_kCase]; ACTIONS 10016 [sym_kConst]; ACTIONS 3296 [sym_kElse];
   ACTIONS 10018 [sym_kFor]; ACTIONS 10020 [sym_kFunction]; ACTIONS 10022 [sym_kGoto];
   ACTIONS 10024 [sym_kIf]; ACTIONS 10026 [sym_kInherited]; ACTIONS 10002 [sym_kNil];
   ACTIONS 10000 [sym_kNot]; ACTIONS 10020 [sym_kProcedure]; ACTIONS 10028 [sym_kRaise];
   ACTIONS 10030 [sym_kRepeat]; ACTIONS 10032 [sym_kString]; ACTIONS 10034 [sym_kTry];
   ACTIONS 10036 [sym_kVar]; ACTIONS 10038 [sym_kWhile]; ACTIONS 10040 [sym_kWith]].

(** State 1190. *)
Definition ts_parse_table_1190 : parse_row :=
  [STATE 6451 [sym_if]; STATE 6424 [sym_ifElse; sym_while; sym_repeat; sym_for; sym_foreach;
   sym_try; sym_case; sym_block; sym_asm; sym_with; sym_raise; sym_statement; sym_goto;
   sym_labeledStatement; sym__statement]; STATE 15995 [sym_ifTr; sym_ifElseTr; sym_whileTr;
   sym_repeatTr; sym_forTr; sym_foreachTr; sym_tryTr; sym_caseTr]; STATE 15738 [sym_blockTr];
   STATE 15995 [sym_asmTr; sym_withTr; sym_raiseTr; sym_statementTr; sym_gotoTr;
   sym_labeledStatementTr; sym__statementTr]; STATE 13614 [sym_assignment];
   STATE 11905 [sym_varAssignDef]; STATE 13614 [sym_varDef; sym_constDef];
   STATE 1280 [sym_label]; STATE 8032 [sym__expr; sym_exprConditional]; STATE 7363 [sym__ref;
   sym_lambda; sym_inherited; sym_exprDot; sym_exprDeref; sym_exprAs; sym_exprTpl;
   sym_exprSubscript; sym_exprCall]; STATE 8032 [sym_exprBinary; sym_exprUnary];
   STATE 7363 [sym_exprParens; sym_exprBrackets; sym__literal; sym_literalString];
   STATE 6967 [sym__literalString; sym_literalChar]; STATE 7363 [sym_literalNumber];
   STATE 7660 [sym__literalInt; sym__literalFloat]; STATE 6967 [aux_sym_literalString_repeat1];
   ACTIONS 10678 [anon_sym_SEMI]; ACTIONS 9986 [anon_sym_LBRACK]; ACTIONS 9988 [anon_sym_LPAREN];
   ACTIONS 9990 [aux_sym__literalString_token1]; ACTIONS 9992 [anon_sym_POUND];
   ACTIONS 9994 [aux_sym__literalInt_token1]; ACTIONS 9996 [aux_sym__literalInt_token2;
   aux_sym__literalInt_token3]; ACTIONS 9994 [aux_sym__literalFloat_token1];
   ACTIONS 9998 [sym_kAdd; sym_kSub]; ACTIONS 10000 [sym_kAt]; ACTIONS 10002 [sym_kTrue;
   sym_kFalse]; ACTIONS 10004 [sym_labelNumber]; ACTIONS 3 [sym__space];
   ACTIONS 5 [sym_ppDirective]; ACTIONS 3 [sym_comment]; ACTIONS 10002 [sym_ppFragmentExpr];
   ACTIONS 9990 [sym__literalStringMultiline]; ACTIONS 10006 [sym_identifier];
   ACTIONS 10008 [sym_kSpecialize]; ACTIONS 10010 [sym_kAsm]; ACTIONS 10012 [sym_kBegin];
   ACTIONS 10014 [sym_kCase]; ACTIONS 10016 [sym_kConst]; ACTIONS 3304 [sym_kElse];
   ACTIONS 10018 [sym_kFor]; ACTIONS 10020 [sym_kFunction]; ACTIONS 10022 [sym_kGoto];
   ACTIONS 10024 [sym_kIf]; ACTIONS 10026 [sym_kInherited]; ACTIONS 10002 [sym_kNil];
   ACTIONS 10000 [sym_kNot]; ACTIONS 10020 [sym_kProcedure]; ACTIONS 10028 [sym_kRaise];
   ACTIONS 10030 [sym_kRepeat]; ACTIONS 10032 [sym_kString]; ACTIONS 10034 [sym_kTry];
   ACTIONS 10036 [sym_kVar]; ACTIONS 10038 [sym_kWhile]; ACTIONS 10040 [sym_kWith]].

(** State 1191. *)
Definition ts_parse_table_1191 : parse_row :=
  [STATE 6113 [sym_if]; STATE 6004 [sym_ifElse; sym_while; sym_repeat; sym_for; sym_foreach;
   sym_try; sym_case; sym_block; sym_asm; sym_with; sym_raise; sym_statement; sym_goto;
   sym__statement]; STATE 13807 [sym_ifTr; sym_ifElseTr; sym_whileTr; sym_repeatTr; sym_forTr;
   sym_foreachTr; sym_tryTr; sym_caseTr]; STATE 13296 [sym_blockTr]; STATE 13807 [sym_asmTr;
   sym_withTr; sym_raiseTr; sym_statementTr; sym_gotoTr; sym__statementTr];
   STATE 12733 [sym_assignment]; STATE 11883 [sym_varAssignDef]; STATE 12733 [sym_varDef;
   sym_constDef]; STATE 6114 [sym_label]; STATE 7784 [sym__expr; sym_exprConditional];
   STATE 7341 [sym__ref; sym_lambda; sym_inherited; sym_exprDot; sym_exprDeref; sym_exprAs;
   sym_exprTpl; sym_exprSubscript; sym_exprCall]; STATE 7784 [sym_exprBinary; sym_exprUnary];
   STATE 7341 [sym_exprParens; sym_exprBrackets; sym__literal; sym_literalString];
   STATE 6534 [sym__literalString; sym_literalChar]; STATE 7341 [sym_literalNumber];
   STATE 7552 [sym__literalInt; sym__literalFloat];
   STATE 6114 [aux_sym_labeledStatement_repeat1]; STATE 6534 [aux_sym_literalString_repeat1];
   ACTIONS 10680 [anon_sym_SEMI]; ACTIONS 9634 [anon_sym_LBRACK]; ACTIONS 9636 [anon_sym_LPAREN];
   ACTIONS 9638 [aux_sym__literalString_token1]; ACTIONS 9640 [anon_sym_POUND];
   ACTIONS 9642 [aux_sym__literalInt_token1]; ACTIONS 9644 [aux_sym__literalInt_token2;
   aux_sym__literalInt_token3]; ACTIONS 9642 [aux_sym__literalFloat_token1];
   ACTIONS 9646 [sym_kAdd; sym_kSub]; ACTIONS 9648 [sym_kAt]; ACTIONS 9650 [sym_kTrue;
   sym_kFalse]; ACTIONS 9652 [sym_labelNumber]; ACTIONS 3 [sym__space];
   ACTIONS 5 [sym_ppDirective]; ACTIONS 3 [sym_comment]; ACTIONS 9650 [sym_ppFragmentExpr];
   ACTIONS 9638 [sym__literalStringMultiline]; ACTIONS 9654 [sym_identifier];
   ACTIONS 9656 [sym_kSpecialize]; ACTIONS 9658 [sym_kAsm]; ACTIONS 9660 [sym_kBegin];
   ACTIONS 9662 [sym_kCase]; ACTIONS 9664 [sym_kConst]; ACTIONS 4439 [sym_kElse; sym_kEnd];
   ACTIONS 9666 [sym_kFor]; ACTIONS 9668 [sym_kFunction]; ACTIONS 9670 [sym_kGoto];
   ACTIONS 9672 [sym_kIf]; ACTIONS 9674 [sym_kInherited]; ACTIONS 9650 [sym_kNil];
   ACTIONS 9648 [sym_kNot]; ACTIONS 9668 [sym_kProcedure]; ACTIONS 9676 [sym_kRaise];
   ACTIONS 9678 [sym_kRepeat]; ACTIONS 9680 [sym_kString]; ACTIONS 9682 [sym_kTry];
   ACTIONS 9684 [sym_kVar]; ACTIONS 9686 [sym_kWhile]; ACTIONS 9688 [sym_kWith]].

(** State 1192. *)
Definition ts_parse_table_1192 : parse_row :=
  [STATE 6213 [sym_if]; STATE 6186 [sym_ifElse; sym_while; sym_repeat; sym_for; sym_foreach;
   sym_try; sym_case; sym_block; sym_asm; sym_with; sym_raise; sym_statement; sym_goto;
   sym_labeledStatement; sym__statement]; STATE 14296 [sym_ifTr; sym_ifElseTr; sym_whileTr;
   sym_repeatTr; sym_forTr; sym_foreachTr; sym_tryTr; sym_caseTr]; STATE 14251 [sym_blockTr];
   STATE 14296 [sym_asmTr; sym_withTr; sym_raiseTr; sym_statementTr; sym_gotoTr;
   sym_labeledStatementTr; sym__statementTr]; STATE 13915 [sym_assignment];
   STATE 11785 [sym_varAssignDef]; STATE 13915 [sym_varDef; sym_constDef];
   STATE 1213 [sym_label]; STATE 8019 [sym__expr; sym_exprConditional]; STATE 7478 [sym__ref;
   sym_lambda; sym_inherited; sym_exprDot; sym_exprDeref; sym_exprAs; sym_exprTpl;
   sym_exprSubscript; sym_exprCall]; STATE 8019 [sym_exprBinary; sym_exprUnary];
   STATE 7478 [sym_exprParens; sym_exprBrackets; sym__literal; sym_literalString];
   STATE 6664 [sym__literalString; sym_literalChar]; STATE 7478 [sym_literalNumber];
   STATE 7742 [sym__literalInt; sym__literalFloat]; STATE 6664 [aux_sym_literalString_repeat1];
   ACTIONS 9978 [anon_sym_SEMI]; ACTIONS 399 [anon_sym_LBRACK]; ACTIONS 401 [anon_sym_LPAREN];
   ACTIONS 403 [aux_sym__literalString_token1]; ACTIONS 405 [anon_sym_POUND];
   ACTIONS 407 [aux_sym__literalInt_token1]; ACTIONS 409 [aux_sym__literalInt_token2;
   aux_sym__literalInt_token3]; ACTIONS 407 [aux_sym__literalFloat_token1];
   ACTIONS 413 [sym_kAdd; sym_kSub]; ACTIONS 415 [sym_kAt]; ACTIONS 417 [sym_kTrue; sym_kFalse];
   ACTIONS 10098 [sym_labelNumber]; ACTIONS 3 [sym__space]; ACTIONS 5 [sym_ppDirective];
   ACTIONS 3 [sym_comment]; ACTIONS 417 [sym_ppFragmentExpr];
   ACTIONS 403 [sym__literalStringMultiline]; ACTIONS 10100 [sym_identifier];
   ACTIONS 423 [sym_kSpecialize]; ACTIONS 427 [sym_kAsm]; ACTIONS 429 [sym_kBegin];
   ACTIONS 431 [sym_kCase]; ACTIONS 433 [sym_kConst]; ACTIONS 3290 [sym_kEnd];
   ACTIONS 437 [sym_kFor]; ACTIONS 439 [sym_kFunction]; ACTIONS 441 [sym_kGoto];
   ACTIONS 443 [sym_kIf]; ACTIONS 445 [sym_kInherited]; ACTIONS 417 [sym_kNil];
   ACTIONS 415 [sym_kNot]; ACTIONS 439 [sym_kProcedure]; ACTIONS 447 [sym_kRaise];
   ACTIONS 449 [sym_kRepeat]; ACTIONS 451 [sym_kString]; ACTIONS 453 [sym_kTry];
   ACTIONS 455 [sym_kVar]; ACTIONS 457 [sym_kWhile]; ACTIONS 459 [sym_kWith]].

(** State 1193. *)
Definition ts_parse_table_1193 : parse_row :=
  [STATE 6213 [sym_if]; STATE 6203 [sym_ifElse; sym_while; sym_repeat; sym_for; sym_foreach;
   sym_try; sym_case; sym_block; sym_asm; sym_with; sym_raise; sym_statement; sym_goto;
   sym_labeledStatement; sym__statement]; STATE 14402 [sym_ifTr; sym_ifElseTr; sym_whileTr;
   sym_repeatTr; sym_forTr; sym_foreachTr; sym_tryTr; sym_caseTr]; STATE 14251 [sym_blockTr];
   STATE 14402 [sym_asmTr; sym_withTr; sym_raiseTr; sym_statementTr; sym_gotoTr;
   sym_labeledStatementTr; sym__statementTr]; STATE 13915 [sym_assignment];
   STATE 11785 [sym_varAssignDef]; STATE 13915 [sym_varDef; sym_constDef];
   STATE 1213 [sym_label]; STATE 8019 [sym__expr; sym_exprConditional]; STATE 7478 [sym__ref;
   sym_lambda; sym_inherited; sym_exprDot; sym_exprDeref; sym_exprAs; sym_exprTpl;
   sym_exprSubscript; sym_exprCall]; STATE 8019 [sym_exprBinary; sym_exprUnary];
   STATE 7478 [sym_exprParens; sym_exprBrackets; sym__literal; sym_literalString];
   STATE 6664 [sym__literalString; sym_literalChar]; STATE 7478 [sym_literalNumber];
   STATE 7742 [sym__literalInt; sym__literalFloat]; STATE 6664 [aux_sym_literalString_repeat1];
   ACTIONS 9980 [anon_sym_SEMI]; ACTIONS 399 [anon_sym_LBRACK]; ACTIONS 401 [anon_sym_LPAREN];
   ACTIONS 403 [aux_sym__literalString_token1]; ACTIONS 405 [anon_sym_POUND];
   ACTIONS 407 [aux_sym__literalInt_token1]; ACTIONS 409 [aux_sym__literalInt_token2;
   aux_sym__literalInt_token3]; ACTIONS 407 [aux_sym__literalFloat_token1];
   ACTIONS 413 [sym_kAdd; sym_kSub]; ACTIONS 415 [sym_kAt]; ACTIONS 417 [sym_kTrue; sym_kFalse];
   ACTIONS 10098 [sym_labelNumber]; ACTIONS 3 [sym__space]; ACTIONS 5 [sym_ppDirective];
   ACTIONS 3 [sym_comment]; ACTIONS 417 [sym_ppFragmentExpr];
   ACTIONS 403 [sym__literalStringMultiline]; ACTIONS 10100 [sym_identifier];
   ACTIONS 423 [sym_kSpecialize]; ACTIONS 427 [sym_kAsm]; ACTIONS 429 [sym_kBegin];
   ACTIONS 431 [sym_kCase]; ACTIONS 433 [sym_kConst]; ACTIONS 3296 [sym_kEnd];
   ACTIONS 437 [sym_kFor]; ACTIONS 439 [sym_kFunction]; ACTIONS 441 [sym_kGoto];
   ACTIONS 443 [sym_kIf]; ACTIONS 445 [sym_kInherited]; ACTIONS 417 [sym_kNil];
   ACTIONS 415 [sym_kNot]; ACTIONS 439 [sym_kProcedure]; ACTIONS 447 [sym_kRaise];
   ACTIONS 449 [sym_kRepeat]; ACTIONS 451 [sym_kString]; ACTIONS 453 [sym_kTry];
   ACTIONS 455 [sym_kVar]; ACTIONS 457 [sym_kWhile]; ACTIONS 459 [sym_kWith]].

(** State 1194. *)
Definition ts_parse_table_1194 : parse_row :=
  [STATE 6213 [sym_if]; STATE 6280 [sym_ifElse; sym_while; sym_repeat; sym_for; sym_foreach;
   sym_try; sym_case; sym_block; sym_asm; sym_with; sym_raise; sym_statement; sym_goto;
   sym_labeledStatement; sym__statement]; STATE 14747 [sym_ifTr; sym_ifElseTr; sym_whileTr;
   sym_repeatTr; sym_forTr; sym_foreachTr; sym_tryTr; sym_caseTr]; STATE 14251 [sym_blockTr];
   STATE 14747 [sym_asmTr; sym_withTr; sym_raiseTr; sym_statementTr; sym_gotoTr;
   sym_labeledStatementTr; sym__statementTr]; STATE 13915 [sym_assignment];
   STATE 11785 [sym_varAssignDef]; STATE 13915 [sym_varDef; sym_constDef];
   STATE 1213 [sym_label]; STATE 8019 [sym__expr; sym_exprConditional]; STATE 7478 [sym__ref;
   sym_lambda; sym_inherited; sym_exprDot; sym_exprDeref; sym_exprAs; sym_exprTpl;
   sym_exprSubscript; sym_exprCall]; STATE 8019 [sym_exprBinary; sym_exprUnary];
   STATE 7478 [sym_exprParens; sym_exprBrackets; sym__literal; sym_literalString];
   STATE 6664 [sym__literalString; sym_literalChar]; STATE 7478 [sym_literalNumber];
   STATE 7742 [sym__literalInt; sym__literalFloat]; STATE 6664 [aux_sym_literalString_repeat1];
   ACTIONS 9690 [anon_sym_SEMI]; ACTIONS 399 [anon_sym_LBRACK]; ACTIONS 401 [anon_sym_LPAREN];
   ACTIONS 403 [aux_sym__literalString_token1]; ACTIONS 405 [anon_sym_POUND];
   ACTIONS 407 [aux_sym__literalInt_token1]; ACTIONS 409 [aux_sym__literalInt_token2;
   aux_sym__literalInt_token3]; ACTIONS 407 [aux_sym__literalFloat_token1];
   ACTIONS 413 [sym_kAdd; sym_kSub]; ACTIONS 415 [sym_kAt]; ACTIONS 417 [sym_kTrue; sym_kFalse];
   ACTIONS 10098 [sym_labelNumber]; ACTIONS 3 [sym__space]; ACTIONS 5 [sym_ppDirective];
   ACTIONS 3 [sym_comment]; ACTIONS 417 [sym_ppFragmentExpr];
   ACTIONS 403 [sym__literalStringMultiline]; ACTIONS 10100 [sym_identifier];
   ACTIONS 423 [sym_kSpecialize]; ACTIONS 427 [sym_kAsm]; ACTIONS 429 [sym_kBegin];
   ACTIONS 431 [sym_kCase]; ACTIONS 433 [sym_kConst]; ACTIONS 3304 [sym_kEnd];
   ACTIONS 437 [sym_kFor]; ACTIONS 439 [sym_kFunction]; ACTIONS 441 [sym_kGoto];
   ACTIONS 443 [sym_kIf]; ACTIONS 445 [sym_kInherited]; ACTIONS 417 [sym_kNil];
   ACTIONS 415 [sym_kNot]; ACTIONS 439 [sym_kProcedure]; ACTIONS 447 [sym_kRaise];
   ACTIONS 449 [sym_kRepeat]; ACTIONS 451 [sym_kString]; ACTIONS 453 [sym_kTry];
   ACTIONS 455 [sym_kVar]; ACTIONS 457 [sym_kWhile]; ACTIONS 459 [sym_kWith]].

(** State 1195. *)
Definition ts_parse_table_1195 : parse_row :=
  [STATE 6747 [sym_if]; STATE 6652 [sym_ifElse; sym_while; sym_repeat; sym_for; sym_foreach;
   sym_try; sym_case; sym_block; sym_asm; sym_with; sym_raise; sym_statement; sym_goto;
   sym_labeledStatement; sym__statement]; STATE 15874 [sym_ifTr; sym_ifElseTr; sym_whileTr;
   sym_repeatTr; sym_forTr; sym_foreachTr; sym_tryTr; sym_caseTr]; STATE 15738 [sym_blockTr];
   STATE 15874 [sym_asmTr; sym_withTr; sym_raiseTr; sym_statementTr; sym_gotoTr;
   sym_labeledStatementTr; sym__statementTr]; STATE 13971 [sym_assignment];
   STATE 11905 [sym_varAssignDef]; STATE 13971 [sym_varDef; sym_constDef];
   STATE 1230 [sym_label]; STATE 8140 [sym__expr; sym_exprConditional]; STATE 7363 [sym__ref;
   sym_lambda; sym_inherited; sym_exprDot; sym_exprDeref; sym_exprAs; sym_exprTpl;
   sym_exprSubscript; sym_exprCall]; STATE 8140 [sym_exprBinary; sym_exprUnary];
   STATE 7363 [sym_exprParens; sym_exprBrackets; sym__literal; sym_literalString];
   STATE 6967 [sym__literalString; sym_literalChar]; STATE 7363 [sym_literalNumber];
   STATE 7660 [sym__literalInt; sym__literalFloat]; STATE 6967 [aux_sym_literalString_repeat1];
   ACTIONS 10682 [anon_sym_SEMI]; ACTIONS 9986 [anon_sym_LBRACK]; ACTIONS 9988 [anon_sym_LPAREN];
   ACTIONS 9990 [aux_sym__literalString_token1]; ACTIONS 9992 [anon_sym_POUND];
   ACTIONS 9994 [aux_sym__literalInt_token1]; ACTIONS 9996 [aux_sym__literalInt_token2;
   aux_sym__literalInt_token3]; ACTIONS 9994 [aux_sym__literalFloat_token1];
   ACTIONS 9998 [sym_kAdd; sym_kSub]; ACTIONS 10000 [sym_kAt]; ACTIONS 10002 [sym_kTrue;
   sym_kFalse]; ACTIONS 10004 [sym_labelNumber]; ACTIONS 3 [sym__space];
   ACTIONS 5 [sym_ppDirective]; ACTIONS 3 [sym_comment]; ACTIONS 10002 [sym_ppFragmentExpr];
   ACTIONS 9990 [sym__literalStringMultiline]; ACTIONS 10006 [sym_identifier];
   ACTIONS 10008 [sym_kSpecialize]; ACTIONS 10044 [sym_kAsm]; ACTIONS 10046 [sym_kBegin];
   ACTIONS 10048 [sym_kCase]; ACTIONS 10016 [sym_kConst]; ACTIONS 3272 [sym_kElse];
   ACTIONS 10050 [sym_kFor]; ACTIONS 10020 [sym_kFunction]; ACTIONS 10052 [sym_kGoto];
   ACTIONS 10054 [sym_kIf]; ACTIONS 10026 [sym_kInherited]; ACTIONS 10002 [sym_kNil];
   ACTIONS 10000 [sym_kNot]; ACTIONS 10020 [sym_kProcedure]; ACTIONS 10056 [sym_kRaise];
   ACTIONS 10058 [sym_kRepeat]; ACTIONS 10032 [sym_kString]; ACTIONS 10060 [sym_kTry];
   ACTIONS 10036 [sym_kVar]; ACTIONS 10062 [sym_kWhile]; ACTIONS 10064 [sym_kWith]].

(** State 1196. *)
Definition ts_parse_table_1196 : parse_row :=
  [STATE 9155 [sym_if]; STATE 9358 [sym_ifElse; sym_while; sym_repeat; sym_for; sym_foreach;
   sym_try; sym_case; sym_block; sym_asm; sym_with; sym_raise; sym_statement; sym_goto;
   sym_labeledStatement; sym__statement]; STATE 14470 [sym_ifTr; sym_ifElseTr; sym_whileTr;
   sym_repeatTr; sym_forTr; sym_foreachTr; sym_tryTr; sym_caseTr]; STATE 15738 [sym_blockTr];
   STATE 14470 [sym_asmTr; sym_withTr; sym_raiseTr; sym_statementTr; sym_gotoTr;
   sym_labeledStatementTr; sym__statementTr]; STATE 13921 [sym_assignment];
   STATE 11905 [sym_varAssignDef]; STATE 13921 [sym_varDef; sym_constDef];
   STATE 1283 [sym_label]; STATE 8063 [sym__expr; sym_exprConditional]; STATE 7363 [sym__ref;
   sym_lambda; sym_inherited; sym_exprDot; sym_exprDeref; sym_exprAs; sym_exprTpl;
   sym_exprSubscript; sym_exprCall]; STATE 8063 [sym_exprBinary; sym_exprUnary];
   STATE 7363 [sym_exprParens; sym_exprBrackets; sym__literal; sym_literalString];
   STATE 6967 [sym__literalString; sym_literalChar]; STATE 7363 [sym_literalNumber];
   STATE 7660 [sym__literalInt; sym__literalFloat]; STATE 6967 [aux_sym_literalString_repeat1];
   ACTIONS 9318 [anon_sym_SEMI]; ACTIONS 9986 [anon_sym_LBRACK]; ACTIONS 9988 [anon_sym_LPAREN];
   ACTIONS 9990 [aux_sym__literalString_token1]; ACTIONS 9992 [anon_sym_POUND];
   ACTIONS 9994 [aux_sym__literalInt_token1]; ACTIONS 9996 [aux_sym__literalInt_token2;
   aux_sym__literalInt_token3]; ACTIONS 9994 [aux_sym__literalFloat_token1];
   ACTIONS 9998 [sym_kAdd; sym_kSub]; ACTIONS 10000 [sym_kAt]; ACTIONS 10002 [sym_kTrue;
   sym_kFalse]; ACTIONS 10004 [sym_labelNumber]; ACTIONS 3 [sym__space];
   ACTIONS 5 [sym_ppDirective]; ACTIONS 3 [sym_comment]; ACTIONS 10002 [sym_ppFragmentExpr];
   ACTIONS 9990 [sym__literalStringMultiline]; ACTIONS 10006 [sym_identifier];
   ACTIONS 10008 [sym_kSpecialize]; ACTIONS 10236 [sym_kAsm]; ACTIONS 10238 [sym_kBegin];
   ACTIONS 10240 [sym_kCase]; ACTIONS 10016 [sym_kConst]; ACTIONS 10684 [sym_kElse];
   ACTIONS 10244 [sym_kFor]; ACTIONS 10020 [sym_kFunction]; ACTIONS 10246 [sym_kGoto];
   ACTIONS 10248 [sym_kIf]; ACTIONS 10026 [sym_kInherited]; ACTIONS 10002 [sym_kNil];
   ACTIONS 10000 [sym_kNot]; ACTIONS 10020 [sym_kProcedure]; ACTIONS 10250 [sym_kRaise];
   ACTIONS 10252 [sym_kRepeat]; ACTIONS 10032 [sym_kString]; ACTIONS 10254 [sym_kTry];
   ACTIONS 10036 [sym_kVar]; ACTIONS 10256 [sym_kWhile]; ACTIONS 10258 [sym_kWith]].

(** State 1197. *)
Definition ts_parse_table_1197 : parse_row :=
  [STATE 6747 [sym_if]; STATE 6660 [sym_ifElse; sym_while; sym_repeat; sym_for; sym_foreach;
   sym_try; sym_case; sym_block; sym_asm; sym_with; sym_raise; sym_statement; sym_goto;
   sym_labeledStatement; sym__statement]; STATE 15916 [sym_ifTr; sym_ifElseTr; sym_whileTr;
   sym_repeatTr; sym_forTr; sym_foreachTr; sym_tryTr; sym_caseTr]; STATE 15738 [sym_blockTr];
   STATE 15916 [sym_asmTr; sym_withTr; sym_raiseTr; sym_statementTr; sym_gotoTr;
   sym_labeledStatementTr; sym__statementTr]; STATE 13971 [sym_assignment];
   STATE 11905 [sym_varAssignDef]; STATE 13971 [sym_varDef; sym_constDef];
   STATE 1230 [sym_label]; STATE 8140 [sym__expr; sym_exprConditional]; STATE 7363 [sym__ref;
   sym_lambda; sym_inherited; sym_exprDot; sym_exprDeref; sym_exprAs; sym_exprTpl;
   sym_exprSubscript; sym_exprCall]; STATE 8140 [sym_exprBinary; sym_exprUnary];
   STATE 7363 [sym_exprParens; sym_exprBrackets; sym__literal; sym_literalString];
   STATE 6967 [sym__literalString; sym_literalChar]; STATE 7363 [sym_literalNumber];
   STATE 7660 [sym__literalInt; sym__literalFloat]; STATE 6967 [aux_sym_literalString_repeat1];
   ACTIONS 10686 [anon_sym_SEMI]; ACTIONS 9986 [anon_sym_LBRACK]; ACTIONS 9988 [anon_sym_LPAREN];
   ACTIONS 9990 [aux_sym__literalString_token1]; ACTIONS 9992 [anon_sym_POUND];
   ACTIONS 9994 [aux_sym__literalInt_token1]; ACTIONS 9996 [aux_sym__literalInt_token2;
   aux_sym__literalInt_token3]; ACTIONS 9994 [aux_sym__literalFloat_token1];
   ACTIONS 9998 [sym_kAdd; sym_kSub]; ACTIONS 10000 [sym_kAt]; ACTIONS 10002 [sym_kTrue;
   sym_kFalse]; ACTIONS 10004 [sym_labelNumber]; ACTIONS 3 [sym__space];
   ACTIONS 5 [sym_ppDirective]; ACTIONS 3 [sym_comment]; ACTIONS 10002 [sym_ppFragmentExpr];
   ACTIONS 9990 [sym__literalStringMultiline]; ACTIONS 10006 [sym_identifier];
   ACTIONS 10008 [sym_kSpecialize]; ACTIONS 10044 [sym_kAsm]; ACTIONS 10046 [sym_kBegin];
   ACTIONS 10048 [sym_kCase]; ACTIONS 10016 [sym_kConst]; ACTIONS 3278 [sym_kElse];
   ACTIONS 10050 [sym_kFor]; ACTIONS 10020 [sym_kFunction]; ACTIONS 10052 [sym_kGoto];
   ACTIONS 10054 [sym_kIf]; ACTIONS 10026 [sym_kInherited]; ACTIONS 10002 [sym_kNil];
   ACTIONS 10000 [sym_kNot]; ACTIONS 10020 [sym_kProcedure]; ACTIONS 10056 [sym_kRaise];
   ACTIONS 10058 [sym_kRepeat]; ACTIONS 10032 [sym_kString]; ACTIONS 10060 [sym_kTry];
   ACTIONS 10036 [sym_kVar]; ACTIONS 10062 [sym_kWhile]; ACTIONS 10064 [sym_kWith]].

(** State 1198. *)
Definition ts_parse_table_1198 : parse_row :=
  [STATE 6273 [sym_if]; STATE 6141 [sym_ifElse; sym_while; sym_repeat; sym_for; sym_foreach;
   sym_try; sym_case; sym_block; sym_asm; sym_with; sym_raise; sym_statement; sym_goto;
   sym_labeledStatement; sym__statement]; STATE 14843 [sym_ifTr; sym_ifElseTr; sym_whileTr;
   sym_repeatTr; sym_forTr; sym_foreachTr; sym_tryTr; sym_caseTr]; STATE 14967 [sym_blockTr];
   STATE 14843 [sym_asmTr; sym_withTr; sym_raiseTr; sym_statementTr; sym_gotoTr;
   sym_labeledStatementTr; sym__statementTr]; STATE 13420 [sym_assignment];
   STATE 11684 [sym_varAssignDef]; STATE 13420 [sym_varDef; sym_constDef];
   STATE 1260 [sym_label]; STATE 8128 [sym__expr; sym_exprConditional]; STATE 7533 [sym__ref;
   sym_lambda; sym_inherited; sym_exprDot; sym_exprDeref; sym_exprAs; sym_exprTpl;
   sym_exprSubscript; sym_exprCall]; STATE 8128 [sym_exprBinary; sym_exprUnary];
   STATE 7533 [sym_exprParens; sym_exprBrackets; sym__literal; sym_literalString];
   STATE 6915 [sym__literalString; sym_literalChar]; STATE 7533 [sym_literalNumber];
   STATE 7570 [sym__literalInt; sym__literalFloat]; STATE 6915 [aux_sym_literalString_repeat1];
   ACTIONS 9874 [anon_sym_SEMI]; ACTIONS 927 [anon_sym_LBRACK]; ACTIONS 929 [anon_sym_LPAREN];
   ACTIONS 931 [aux_sym__literalString_token1]; ACTIONS 933 [anon_sym_POUND];
   ACTIONS 935 [aux_sym__literalInt_token1]; ACTIONS 937 [aux_sym__literalInt_token2;
   aux_sym__literalInt_token3]; ACTIONS 935 [aux_sym__literalFloat_token1];
   ACTIONS 939 [sym_kAdd; sym_kSub]; ACTIONS 941 [sym_kAt]; ACTIONS 943 [sym_kTrue; sym_kFalse];
   ACTIONS 10188 [sym_labelNumber]; ACTIONS 3 [sym__space]; ACTIONS 5 [sym_ppDirective];
   ACTIONS 3 [sym_comment]; ACTIONS 943 [sym_ppFragmentExpr];
   ACTIONS 931 [sym__literalStringMultiline]; ACTIONS 10190 [sym_identifier];
   ACTIONS 949 [sym_kSpecialize]; ACTIONS 951 [sym_kAsm]; ACTIONS 953 [sym_kBegin];
   ACTIONS 955 [sym_kCase]; ACTIONS 957 [sym_kConst]; ACTIONS 959 [sym_kFor];
   ACTIONS 961 [sym_kFunction]; ACTIONS 963 [sym_kGoto]; ACTIONS 965 [sym_kIf];
   ACTIONS 967 [sym_kInherited]; ACTIONS 943 [sym_kNil]; ACTIONS 941 [sym_kNot];
   ACTIONS 961 [sym_kProcedure]; ACTIONS 969 [sym_kRaise]; ACTIONS 971 [sym_kRepeat];
   ACTIONS 973 [sym_kString]; ACTIONS 975 [sym_kTry]; ACTIONS 3272 [sym_kUntil];
   ACTIONS 979 [sym_kVar]; ACTIONS 981 [sym_kWhile]; ACTIONS 983 [sym_kWith]].

(** State 1199. *)
Definition ts_parse_table_1199 : parse_row :=
  [STATE 6273 [sym_if]; STATE 6237 [sym_ifElse; sym_while; sym_repeat; sym_for; sym_foreach;
   sym_try; sym_case; sym_block; sym_asm; sym_with; sym_raise; sym_statement; sym_goto;
   sym_labeledStatement; sym__statement]; STATE 14847 [sym_ifTr; sym_ifElseTr; sym_whileTr;
   sym_repeatTr; sym_forTr; sym_foreachTr; sym_tryTr; sym_caseTr]; STATE 14967 [sym_blockTr];
   STATE 14847 [sym_asmTr; sym_withTr; sym_raiseTr; sym_statementTr; sym_gotoTr;
   sym_labeledStatementTr; sym__statementTr]; STATE 13420 [sym_assignment];
   STATE 11684 [sym_varAssignDef]; STATE 13420 [sym_varDef; sym_constDef];
   STATE 1260 [sym_label]; STATE 8128 [sym__expr; sym_exprConditional]; STATE 7533 [sym__ref;
   sym_lambda; sym_inherited; sym_exprDot; sym_exprDeref; sym_exprAs; sym_exprTpl;
   sym_exprSubscript; sym_exprCall]; STATE 8128 [sym_exprBinary; sym_exprUnary];
   STATE 7533 [sym_exprParens; sym_exprBrackets; sym__literal; sym_literalString];
   STATE 6915 [sym__literalString; sym_literalChar]; STATE 7533 [sym_literalNumber];
   STATE 7570 [sym__literalInt; sym__literalFloat]; STATE 6915 [aux_sym_literalString_repeat1];
   ACTIONS 9898 [anon_sym_SEMI]; ACTIONS 927 [anon_sym_LBRACK]; ACTIONS 929 [anon_sym_LPAREN];
   ACTIONS 931 [aux_sym__literalString_token1]; ACTIONS 933 [anon_sym_POUND];
   ACTIONS 935 [aux_sym__literalInt_token1]; ACTIONS 937 [aux_sym__literalInt_token2;
   aux_sym__literalInt_token3]; ACTIONS 935 [aux_sym__literalFloat_token1];
   ACTIONS 939 [sym_kAdd; sym_kSub]; ACTIONS 941 [sym_kAt]; ACTIONS 943 [sym_kTrue; sym_kFalse];
   ACTIONS 10188 [sym_labelNumber]; ACTIONS 3 [sym__space]; ACTIONS 5 [sym_ppDirective];
   ACTIONS 3 [sym_comment]; ACTIONS 943 [sym_ppFragmentExpr];
   ACTIONS 931 [sym__literalStringMultiline]; ACTIONS 10190 [sym_identifier];
   ACTIONS 949 [sym_kSpecialize]; ACTIONS 951 [sym_kAsm]; ACTIONS 953 [sym_kBegin];
   ACTIONS 955 [sym_kCase]; ACTIONS 957 [sym_kConst]; ACTIONS 959 [sym_kFor];
   ACTIONS 961 [sym_kFunction]; ACTIONS 963 [sym_kGoto]; ACTIONS 965 [sym_kIf];
   ACTIONS 967 [sym_kInherited]; ACTIONS 943 [sym_kNil]; ACTIONS 941 [sym_kNot];
   ACTIONS 961 [sym_kProcedure]; ACTIONS 969 [sym_kRaise]; ACTIONS 971 [sym_kRepeat];
   ACTIONS 973 [sym_kString]; ACTIONS 975 [sym_kTry]; ACTIONS 3278 [sym_kUntil];
   ACTIONS 979 [sym_kVar]; ACTIONS 981 [sym_kWhile]; ACTIONS 983 [sym_kWith]].

(** State 1200. *)
Definition ts_parse_table_1200 : parse_row :=
  [STATE 6213 [sym_if]; STATE 6144 [sym_ifElse; sym_while; sym_repeat; sym_for; sym_foreach;
   sym_try; sym_case; sym_block; sym_asm; sym_with; sym_raise; sym_statement; sym_goto;
   sym__statement]; STATE 13807 [sym_ifTr; sym_ifElseTr; sym_whileTr; sym_repeatTr; sym_forTr;
   sym_foreachTr; sym_tryTr; sym_caseTr]; STATE 13296 [sym_blockTr]; STATE 13807 [sym_asmTr;
   sym_withTr; sym_raiseTr; sym_statementTr; sym_gotoTr; sym__statementTr];
   STATE 12751 [sym_assignment]; STATE 11883 [sym_varAssignDef]; STATE 12751 [sym_varDef;
   sym_constDef]; STATE 6114 [sym_label]; STATE 7864 [sym__expr; sym_exprConditional];
   STATE 7341 [sym__ref; sym_lambda; sym_inherited; sym_exprDot; sym_exprDeref; sym_exprAs;
   sym_exprTpl; sym_exprSubscript; sym_exprCall]; STATE 7864 [sym_exprBinary; sym_exprUnary];
   STATE 7341 [sym_exprParens; sym_exprBrackets; sym__literal; sym_literalString];
   STATE 6534 [sym__literalString; sym_literalChar]; STATE 7341 [sym_literalNumber];
   STATE 7552 [sym__literalInt; sym__literalFloat];
   STATE 6114 [aux_sym_labeledStatement_repeat1]; STATE 6534 [aux_sym_literalString_repeat1];
   ACTIONS 10688 [anon_sym_SEMI]; ACTIONS 9634 [anon_sym_LBRACK]; ACTIONS 9636 [anon_sym_LPAREN];
   ACTIONS 9638 [aux_sym__literalString_token1]; ACTIONS 9640 [anon_sym_POUND];
   ACTIONS 9642 [aux_sym__literalInt_token1]; ACTIONS 9644 [aux_sym__literalInt_token2;
   aux_sym__literalInt_token3]; ACTIONS 9642 [aux_sym__literalFloat_token1];
   ACTIONS 9646 [sym_kAdd; sym_kSub]; ACTIONS 9648 [sym_kAt]; ACTIONS 9650 [sym_kTrue;
   sym_kFalse]; ACTIONS 9652 [sym_labelNumber]; ACTIONS 3 [sym__space];
   ACTIONS 5 [sym_ppDirective]; ACTIONS 3 [sym_comment]; ACTIONS 9650 [sym_ppFragmentExpr];
   ACTIONS 9638 [sym__literalStringMultiline]; ACTIONS 9654 [sym_identifier];
   ACTIONS 9656 [sym_kSpecialize]; ACTIONS 9692 [sym_kAsm]; ACTIONS 9694 [sym_kBegin];
   ACTIONS 9696 [sym_kCase]; ACTIONS 9664 [sym_kConst]; ACTIONS 4439 [sym_kElse; sym_kEnd];
   ACTIONS 9698 [sym_kFor]; ACTIONS 9668 [sym_kFunction]; ACTIONS 9700 [sym_kGoto];
   ACTIONS 9702 [sym_kIf]; ACTIONS 9674 [sym_kInherited]; ACTIONS 9650 [sym_kNil];
   ACTIONS 9648 [sym_kNot]; ACTIONS 9668 [sym_kProcedure]; ACTIONS 9704 [sym_kRaise];
   ACTIONS 9706 [sym_kRepeat]; ACTIONS 9680 [sym_kString]; ACTIONS 9708 [sym_kTry];
   ACTIONS 9684 [sym_kVar]; ACTIONS 9710 [sym_kWhile]; ACTIONS 9712 [sym_kWith]].

(** State 1201. *)
Definition ts_parse_table_1201 : parse_row :=
  [STATE 5861 [sym_if]; STATE 5857 [sym_ifElse; sym_while; sym_repeat; sym_for; sym_foreach;
   sym_try; sym_case; sym_block; sym_asm; sym_with; sym_raise; sym_statement; sym_goto;
   sym_labeledStatement; sym__statement]; STATE 15154 [sym_ifTr; sym_ifElseTr; sym_whileTr;
   sym_repeatTr; sym_forTr; sym_foreachTr; sym_tryTr; sym_caseTr]; STATE 15738 [sym_blockTr];
   STATE 15154 [sym_asmTr; sym_withTr; sym_raiseTr; sym_statementTr; sym_gotoTr;
   sym_labeledStatementTr; sym__statementTr]; STATE 13343 [sym_assignment];
   STATE 11905 [sym_varAssignDef]; STATE 13343 [sym_varDef; sym_constDef];
   STATE 1279 [sym_label]; STATE 7967 [sym__expr; sym_exprConditional]; STATE 7363 [sym__ref;
   sym_lambda; sym_inherited; sym_exprDot; sym_exprDeref; sym_exprAs; sym_exprTpl;
   sym_exprSubscript; sym_exprCall]; STATE 7967 [sym_exprBinary; sym_exprUnary];
   STATE 7363 [sym_exprParens; sym_exprBrackets; sym__literal; sym_literalString];
   STATE 6967 [sym__literalString; sym_literalChar]; STATE 7363 [sym_literalNumber];
   STATE 7660 [sym__literalInt; sym__literalFloat]; STATE 6967 [aux_sym_literalString_repeat1];
   ACTIONS 10562 [anon_sym_SEMI]; ACTIONS 9986 [anon_sym_LBRACK]; ACTIONS 9988 [anon_sym_LPAREN];
   ACTIONS 9990 [aux_sym__literalString_token1]; ACTIONS 9992 [anon_sym_POUND];
   ACTIONS 9994 [aux_sym__literalInt_token1]; ACTIONS 9996 [aux_sym__literalInt_token2;
   aux_sym__literalInt_token3]; ACTIONS 9994 [aux_sym__literalFloat_token1];
   ACTIONS 9998 [sym_kAdd; sym_kSub]; ACTIONS 10000 [sym_kAt]; ACTIONS 10002 [sym_kTrue;
   sym_kFalse]; ACTIONS 10004 [sym_labelNumber]; ACTIONS 3 [sym__space];
   ACTIONS 5 [sym_ppDirective]; ACTIONS 3 [sym_comment]; ACTIONS 10002 [sym_ppFragmentExpr];
   ACTIONS 9990 [sym__literalStringMultiline]; ACTIONS 10006 [sym_identifier];
   ACTIONS 10008 [sym_kSpecialize]; ACTIONS 10466 [sym_kAsm]; ACTIONS 10468 [sym_kBegin];
   ACTIONS 10470 [sym_kCase]; ACTIONS 10016 [sym_kConst]; ACTIONS 10690 [sym_kElse];
   ACTIONS 10472 [sym_kFor]; ACTIONS 10020 [sym_kFunction]; ACTIONS 10474 [sym_kGoto];
   ACTIONS 10476 [sym_kIf]; ACTIONS 10026 [sym_kInherited]; ACTIONS 10002 [sym_kNil];
   ACTIONS 10000 [sym_kNot]; ACTIONS 10020 [sym_kProcedure]; ACTIONS 10478 [sym_kRaise];
   ACTIONS 10480 [sym_kRepeat]; ACTIONS 10032 [sym_kString]; ACTIONS 10482 [sym_kTry];
   ACTIONS 10036 [sym_kVar]; ACTIONS 10484 [sym_kWhile]; ACTIONS 10486 [sym_kWith]].

(** State 1202. *)
Definition ts_parse_table_1202 : parse_row :=
  [STATE 6747 [sym_if]; STATE 6680 [sym_ifElse; sym_while; sym_repeat; sym_for; sym_foreach;
   sym_try; sym_case; sym_block; sym_asm; sym_with; sym_raise; sym_statement; sym_goto;
   sym_labeledStatement; sym__statement]; STATE 15171 [sym_ifTr; sym_ifElseTr; sym_whileTr;
   sym_repeatTr; sym_forTr; sym_foreachTr; sym_tryTr; sym_caseTr]; STATE 15738 [sym_blockTr];
   STATE 15171 [sym_asmTr; sym_withTr; sym_raiseTr; sym_statementTr; sym_gotoTr;
   sym_labeledStatementTr; sym__statementTr]; STATE 13971 [sym_assignment];
   STATE 11905 [sym_varAssignDef]; STATE 13971 [sym_varDef; sym_constDef];
   STATE 1230 [sym_label]; STATE 8140 [sym__expr; sym_exprConditional]; STATE 7363 [sym__ref;
   sym_lambda; sym_inherited; sym_exprDot; sym_exprDeref; sym_exprAs; sym_exprTpl;
   sym_exprSubscript; sym_exprCall]; STATE 8140 [sym_exprBinary; sym_exprUnary];
   STATE 7363 [sym_exprParens; sym_exprBrackets; sym__literal; sym_literalString];
   STATE 6967 [sym__literalString; sym_literalChar]; STATE 7363 [sym_literalNumber];
   STATE 7660 [sym__literalInt; sym__literalFloat]; STATE 6967 [aux_sym_literalString_repeat1];
   ACTIONS 10692 [anon_sym_SEMI]; ACTIONS 9986 [anon_sym_LBRACK]; ACTIONS 9988 [anon_sym_LPAREN];
   ACTIONS 9990 [aux_sym__literalString_token1]; ACTIONS 9992 [anon_sym_POUND];
   ACTIONS 9994 [aux_sym__literalInt_token1]; ACTIONS 9996 [aux_sym__literalInt_token2;
   aux_sym__literalInt_token3]; ACTIONS 9994 [aux_sym__literalFloat_token1];
   ACTIONS 9998 [sym_kAdd; sym_kSub]; ACTIONS 10000 [sym_kAt]; ACTIONS 10002 [sym_kTrue;
   sym_kFalse]; ACTIONS 10004 [sym_labelNumber]; ACTIONS 3 [sym__space];
   ACTIONS 5 [sym_ppDirective]; ACTIONS 3 [sym_comment]; ACTIONS 10002 [sym_ppFragmentExpr];
   ACTIONS 9990 [sym__literalStringMultiline]; ACTIONS 10006 [sym_identifier];
   ACTIONS 10008 [sym_kSpecialize]; ACTIONS 10044 [sym_kAsm]; ACTIONS 10046 [sym_kBegin];
   ACTIONS 10048 [sym_kCase]; ACTIONS 10016 [sym_kConst]; ACTIONS 3282 [sym_kElse];
   ACTIONS 10050 [sym_kFor]; ACTIONS 10020 [sym_kFunction]; ACTIONS 10052 [sym_kGoto];
   ACTIONS 10054 [sym_kIf]; ACTIONS 10026 [sym_kInherited]; ACTIONS 10002 [sym_kNil];
   ACTIONS 10000 [sym_kNot]; ACTIONS 10020 [sym_kProcedure]; ACTIONS 10056 [sym_kRaise];
   ACTIONS 10058 [sym_kRepeat]; ACTIONS 10032 [sym_kString]; ACTIONS 10060 [sym_kTry];
   ACTIONS 10036 [sym_kVar]; ACTIONS 10062 [sym_kWhile]; ACTIONS 10064 [sym_kWith]].

(** State 1203. *)
Definition ts_parse_table_1203 : parse_row :=
  [STATE 6747 [sym_if]; STATE 6743 [sym_ifElse; sym_while; sym_repeat; sym_for; sym_foreach;
   sym_try; sym_case; sym_block; sym_asm; sym_with; sym_raise; sym_statement; sym_goto];
   STATE 6737 [sym_labeledStatement]; STATE 6743 [sym__statement]; STATE 14171 [sym_ifTr;
   sym_ifElseTr; sym_whileTr; sym_repeatTr; sym_forTr; sym_foreachTr; sym_tryTr; sym_caseTr];
   STATE 15738 [sym_blockTr]; STATE 14171 [sym_asmTr; sym_withTr; sym_raiseTr; sym_statementTr;
   sym_gotoTr]; STATE 14168 [sym_labeledStatementTr]; STATE 14171 [sym__statementTr];
   STATE 13971 [sym_assignment]; STATE 11905 [sym_varAssignDef]; STATE 13971 [sym_varDef;
   sym_constDef]; STATE 1230 [sym_label]; STATE 8140 [sym__expr; sym_exprConditional];
   STATE 7363 [sym__ref; sym_lambda; sym_inherited; sym_exprDot; sym_exprDeref; sym_exprAs;
   sym_exprTpl; sym_exprSubscript; sym_exprCall]; STATE 8140 [sym_exprBinary; sym_exprUnary];
   STATE 7363 [sym_exprParens; sym_exprBrackets; sym__literal; sym_literalString];
   STATE 6967 [sym__literalString; sym_literalChar]; STATE 7363 [sym_literalNumber];
   STATE 7660 [sym__literalInt; sym__literalFloat]; STATE 6967 [aux_sym_literalString_repeat1];
   ACTIONS 10694 [anon_sym_SEMI]; ACTIONS 9986 [anon_sym_LBRACK]; ACTIONS 9988 [anon_sym_LPAREN];
   ACTIONS 9990 [aux_sym__literalString_token1]; ACTIONS 9992 [anon_sym_POUND];
   ACTIONS 9994 [aux_sym__literalInt_token1]; ACTIONS 9996 [aux_sym__literalInt_token2;
   aux_sym__literalInt_token3]; ACTIONS 9994 [aux_sym__literalFloat_token1];
   ACTIONS 9998 [sym_kAdd; sym_kSub]; ACTIONS 10000 [sym_kAt]; ACTIONS 10002 [sym_kTrue;
   sym_kFalse]; ACTIONS 10004 [sym_labelNumber]; ACTIONS 3 [sym__space];
   ACTIONS 5 [sym_ppDirective]; ACTIONS 3 [sym_comment]; ACTIONS 10002 [sym_ppFragmentExpr];
   ACTIONS 9990 [sym__literalStringMultiline]; ACTIONS 10006 [sym_identifier];
   ACTIONS 10008 [sym_kSpecialize]; ACTIONS 10044 [sym_kAsm]; ACTIONS 10046 [sym_kBegin];
   ACTIONS 10048 [sym_kCase]; ACTIONS 10016 [sym_kConst]; ACTIONS 3286 [sym_kElse];
   ACTIONS 10050 [sym_kFor]; ACTIONS 10020 [sym_kFunction]; ACTIONS 10052 [sym_kGoto];
   ACTIONS 10054 [sym_kIf]; ACTIONS 10026 [sym_kInherited]; ACTIONS 10002 [sym_kNil];
   ACTIONS 10000 [sym_kNot]; ACTIONS 10020 [sym_kProcedure]; ACTIONS 10056 [sym_kRaise];
   ACTIONS 10058 [sym_kRepeat]; ACTIONS 10032 [sym_kString]; ACTIONS 10060 [sym_kTry];
   ACTIONS 10036 [sym_kVar]; ACTIONS 10062 [sym_kWhile]; ACTIONS 10064 [sym_kWith]].

(** State 1204. *)
Definition ts_parse_table_1204 : parse_row :=
  [ACTIONS 10404 [anon_sym_SEMI; anon_sym_COMMA; anon_sym_LBRACK];
   ACTIONS 10696 [anon_sym_LPAREN]; ACTIONS 10404 [aux_sym__literalString_token1;
   anon_sym_POUND]; ACTIONS 10696 [aux_sym__literalInt_token1];
   ACTIONS 10404 [aux_sym__literalInt_token2; aux_sym__literalInt_token3];
   ACTIONS 10696 [aux_sym__literalFloat_token1]; ACTIONS 10404 [aux_sym_ppUsesBlock_token1;
   aux_sym_ppUsesBlock_token2; aux_sym_ppUsesBlock_token3]; ACTIONS 10696 [sym_kAdd; sym_kSub];
   ACTIONS 10404 [sym_kAt; sym_kTrue; sym_kFalse]; ACTIONS 3 [sym__space];
   ACTIONS 5 [sym_ppDirective]; ACTIONS 3 [sym_comment]; ACTIONS 10404 [sym_ppFragmentExpr;
   sym__literalStringMultiline; sym_identifier; sym_kDefault; sym_kNodefault; sym_kDispId;
   sym_kGeneric; sym_kSpecialize; sym_kOperator; sym_kPublic; sym_kStatic; sym_kVirtual;
   sym_kAbstract; sym_kDynamic; sym_kOverride; sym_kOverload; sym_kReintroduce; sym_kStdcall;
   sym_kCdecl; sym_kCppdecl; sym_kPascal; sym_kRegister; sym_kMwpascal; sym_kExternal;
   sym_kMessage; sym_kDeprecated; sym_kExperimental; sym_kPlatform; sym_kUnimplemented;
   sym_kCvar; sym_kExport; sym_kFar; sym_kNear; sym_kSafecall; sym_kAssembler; sym_kNostackframe;
   sym_kInterrupt; sym_kNoreturn; sym_kIocheck; sym_kLocal; sym_kHardfloat; sym_kSoftfloat;
   sym_kMs_abi_default; sym_kMs_abi_cdecl; sym_kSaveregisters; sym_kSysv_abi_default;
   sym_kSysv_abi_cdecl; sym_kVectorcall; sym_kVarargs; sym_kWinapi; sym_kAlias; sym_kAsm;
   sym_kBegin; sym_kCase; sym_kClass; sym_kConst; sym_kConstructor; sym_kDestructor;
   sym_kExports; sym_kFor; sym_kFunction; sym_kGoto; sym_kIf; sym_kInherited; sym_kInline;
   sym_kLabel; sym_kNil; sym_kNot; sym_kProcedure; sym_kProperty; sym_kRaise; sym_kRepeat;
   sym_kResourcestring; sym_kString; sym_kThreadvar; sym_kTry; sym_kType; sym_kUses; sym_kVar;
   sym_kWhile; sym_kWith]].

(** State 1205. *)
Definition ts_parse_table_1205 : parse_row :=
  [STATE 6579 [sym_if]; STATE 6764 [sym_ifElse; sym_while; sym_repeat; sym_for; sym_foreach;
   sym_try; sym_case; sym_block; sym_asm; sym_with; sym_raise; sym_statement; sym_goto;
   sym_labeledStatement; sym__statement]; STATE 14586 [sym_ifTr; sym_ifElseTr; sym_whileTr;
   sym_repeatTr; sym_forTr; sym_foreachTr; sym_tryTr; sym_caseTr]; STATE 15738 [sym_blockTr];
   STATE 14586 [sym_asmTr; sym_withTr; sym_raiseTr; sym_statementTr; sym_gotoTr;
   sym_labeledStatementTr; sym__statementTr]; STATE 13971 [sym_assignment];
   STATE 11905 [sym_varAssignDef]; STATE 13971 [sym_varDef; sym_constDef];
   STATE 1230 [sym_label]; STATE 7989 [sym__expr; sym_exprConditional]; STATE 7363 [sym__ref;
   sym_lambda; sym_inherited; sym_exprDot; sym_exprDeref; sym_exprAs; sym_exprTpl;
   sym_exprSubscript; sym_exprCall]; STATE 7989 [sym_exprBinary; sym_exprUnary];
   STATE 7363 [sym_exprParens; sym_exprBrackets; sym__literal; sym_literalString];
   STATE 6967 [sym__literalString; sym_literalChar]; STATE 7363 [sym_literalNumber];
   STATE 7660 [sym__literalInt; sym__literalFloat]; STATE 6967 [aux_sym_literalString_repeat1];
   ACTIONS 10456 [anon_sym_SEMI]; ACTIONS 9986 [anon_sym_LBRACK]; ACTIONS 9988 [anon_sym_LPAREN];
   ACTIONS 9990 [aux_sym__literalString_token1]; ACTIONS 9992 [anon_sym_POUND];
   ACTIONS 9994 [aux_sym__literalInt_token1]; ACTIONS 9996 [aux_sym__literalInt_token2;
   aux_sym__literalInt_token3]; ACTIONS 9994 [aux_sym__literalFloat_token1];
   ACTIONS 9998 [sym_kAdd; sym_kSub]; ACTIONS 10000 [sym_kAt]; ACTIONS 10002 [sym_kTrue;
   sym_kFalse]; ACTIONS 10004 [sym_labelNumber]; ACTIONS 3 [sym__space];
   ACTIONS 5 [sym_ppDirective]; ACTIONS 3 [sym_comment]; ACTIONS 10002 [sym_ppFragmentExpr];
   ACTIONS 9990 [sym__literalStringMultiline]; ACTIONS 10006 [sym_identifier];
   ACTIONS 10008 [sym_kSpecialize]; ACTIONS 10044 [sym_kAsm]; ACTIONS 10046 [sym_kBegin];
   ACTIONS 10048 [sym_kCase]; ACTIONS 10016 [sym_kConst]; ACTIONS 10698 [sym_kElse];
   ACTIONS 10050 [sym_kFor]; ACTIONS 10020 [sym_kFunction]; ACTIONS 10052 [sym_kGoto];
   ACTIONS 10458 [sym_kIf]; ACTIONS 10026 [sym_kInherited]; ACTIONS 10002 [sym_kNil];
   ACTIONS 10000 [sym_kNot]; ACTIONS 10020 [sym_kProcedure]; ACTIONS 10056 [sym_kRaise];
   ACTIONS 10058 [sym_kRepeat]; ACTIONS 10032 [sym_kString]; ACTIONS 10060 [sym_kTry];
   ACTIONS 10036 [sym_kVar]; ACTIONS 10062 [sym_kWhile]; ACTIONS 10064 [sym_kWith]].

(** State 1206. *)
Definition ts_parse_table_1206 : parse_row :=
  [STATE 6747 [sym_if]; STATE 6788 [sym_ifElse; sym_while; sym_repeat; sym_for; sym_foreach;
   sym_try; sym_case; sym_block; sym_asm; sym_with; sym_raise; sym_statement; sym_goto;
   sym_labeledStatement; sym__statement]; STATE 15904 [sym_ifTr; sym_ifElseTr; sym_whileTr;
   sym_repeatTr; sym_forTr; sym_foreachTr; sym_tryTr; sym_caseTr]; STATE 15738 [sym_blockTr];
   STATE 15904 [sym_asmTr; sym_withTr; sym_raiseTr; sym_statementTr; sym_gotoTr;
   sym_labeledStatementTr; sym__statementTr]; STATE 13971 [sym_assignment];
   STATE 11905 [sym_varAssignDef]; STATE 13971 [sym_varDef; sym_constDef];
   STATE 1230 [sym_label]; STATE 8140 [sym__expr; sym_exprConditional]; STATE 7363 [sym__ref;
   sym_lambda; sym_inherited; sym_exprDot; sym_exprDeref; sym_exprAs; sym_exprTpl;
   sym_exprSubscript; sym_exprCall]; STATE 8140 [sym_exprBinary; sym_exprUnary];
   STATE 7363 [sym_exprParens; sym_exprBrackets; sym__literal; sym_literalString];
   STATE 6967 [sym__literalString; sym_literalChar]; STATE 7363 [sym_literalNumber];
   STATE 7660 [sym__literalInt; sym__literalFloat]; STATE 6967 [aux_sym_literalString_repeat1];
   ACTIONS 10700 [anon_sym_SEMI]; ACTIONS 9986 [anon_sym_LBRACK]; ACTIONS 9988 [anon_sym_LPAREN];
   ACTIONS 9990 [aux_sym__literalString_token1]; ACTIONS 9992 [anon_sym_POUND];
   ACTIONS 9994 [aux_sym__literalInt_token1]; ACTIONS 9996 [aux_sym__literalInt_token2;
   aux_sym__literalInt_token3]; ACTIONS 9994 [aux_sym__literalFloat_token1];
   ACTIONS 9998 [sym_kAdd; sym_kSub]; ACTIONS 10000 [sym_kAt]; ACTIONS 10002 [sym_kTrue;
   sym_kFalse]; ACTIONS 10004 [sym_labelNumber]; ACTIONS 3 [sym__space];
   ACTIONS 5 [sym_ppDirective]; ACTIONS 3 [sym_comment]; ACTIONS 10002 [sym_ppFragmentExpr];
   ACTIONS 9990 [sym__literalStringMultiline]; ACTIONS 10006 [sym_identifier];
   ACTIONS 10008 [sym_kSpecialize]; ACTIONS 10044 [sym_kAsm]; ACTIONS 10046 [sym_kBegin];
   ACTIONS 10048 [sym_kCase]; ACTIONS 10016 [sym_kConst]; ACTIONS 3290 [sym_kElse];
   ACTIONS 10050 [sym_kFor]; ACTIONS 10020 [sym_kFunction]; ACTIONS 10052 [sym_kGoto];
   ACTIONS 10054 [sym_kIf]; ACTIONS 10026 [sym_kInherited]; ACTIONS 10002 [sym_kNil];
   ACTIONS 10000 [sym_kNot]; ACTIONS 10020 [sym_kProcedure]; ACTIONS 10056 [sym_kRaise];
   ACTIONS 10058 [sym_kRepeat]; ACTIONS 10032 [sym_kString]; ACTIONS 10060 [sym_kTry];
   ACTIONS 10036 [sym_kVar]; ACTIONS 10062 [sym_kWhile]; ACTIONS 10064 [sym_kWith]].

(** State 1207. *)
Definition ts_parse_table_1207 : parse_row :=
  [STATE 6747 [sym_if]; STATE 6791 [sym_ifElse; sym_while; sym_repeat; sym_for; sym_foreach;
   sym_try; sym_case; sym_block; sym_asm; sym_with; sym_raise; sym_statement; sym_goto;
   sym_labeledStatement; sym__statement]; STATE 15932 [sym_ifTr; sym_ifElseTr; sym_whileTr;
   sym_repeatTr; sym_forTr; sym_foreachTr; sym_tryTr; sym_caseTr]; STATE 15738 [sym_blockTr];
   STATE 15932 [sym_asmTr; sym_withTr; sym_raiseTr; sym_statementTr; sym_gotoTr;
   sym_labeledStatementTr; sym__statementTr]; STATE 13971 [sym_assignment];
   STATE 11905 [sym_varAssignDef]; STATE 13971 [sym_varDef; sym_constDef];
   STATE 1230 [sym_label]; STATE 8140 [sym__expr; sym_exprConditional]; STATE 7363 [sym__ref;
   sym_lambda; sym_inherited; sym_exprDot; sym_exprDeref; sym_exprAs; sym_exprTpl;
   sym_exprSubscript; sym_exprCall]; STATE 8140 [sym_exprBinary; sym_exprUnary];
   STATE 7363 [sym_exprParens; sym_exprBrackets; sym__literal; sym_literalString];
   STATE 6967 [sym__literalString; sym_literalChar]; STATE 7363 [sym_literalNumber];
   STATE 7660 [sym__literalInt; sym__literalFloat]; STATE 6967 [aux_sym_literalString_repeat1];
   ACTIONS 10702 [anon_sym_SEMI]; ACTIONS 9986 [anon_sym_LBRACK]; ACTIONS 9988 [anon_sym_LPAREN];
   ACTIONS 9990 [aux_sym__literalString_token1]; ACTIONS 9992 [anon_sym_POUND];
   ACTIONS 9994 [aux_sym__literalInt_token1]; ACTIONS 9996 [aux_sym__literalInt_token2;
   aux_sym__literalInt_token3]; ACTIONS 9994 [aux_sym__literalFloat_token1];
   ACTIONS 9998 [sym_kAdd; sym_kSub]; ACTIONS 10000 [sym_kAt]; ACTIONS 10002 [sym_kTrue;
   sym_kFalse]; ACTIONS 10004 [sym_labelNumber]; ACTIONS 3 [sym__space];
   ACTIONS 5 [sym_ppDirective]; ACTIONS 3 [sym_comment]; ACTIONS 10002 [sym_ppFragmentExpr];
   ACTIONS 9990 [sym__literalStringMultiline]; ACTIONS 10006 [sym_identifier];
   ACTIONS 10008 [sym_kSpecialize]; ACTIONS 10044 [sym_kAsm]; ACTIONS 10046 [sym_kBegin];
   ACTIONS 10048 [sym_kCase]; ACTIONS 10016 [sym_kConst]; ACTIONS 3296 [sym_kElse];
   ACTIONS 10050 [sym_kFor]; ACTIONS 10020 [sym_kFunction]; ACTIONS 10052 [sym_kGoto];
   ACTIONS 10054 [sym_kIf]; ACTIONS 10026 [sym_kInherited]; ACTIONS 10002 [sym_kNil];
   ACTIONS 10000 [sym_kNot]; ACTIONS 10020 [sym_kProcedure]; ACTIONS 10056 [sym_kRaise];
   ACTIONS 10058 [sym_kRepeat]; ACTIONS 10032 [sym_kString]; ACTIONS 10060 [sym_kTry];
   ACTIONS 10036 [sym_kVar]; ACTIONS 10062 [sym_kWhile]; ACTIONS 10064 [sym_kWith]].

(** State 1208. *)
Definition ts_parse_table_1208 : parse_row :=
  [STATE 15084 [sym_if]; STATE 14265 [sym_ifElse; sym_while; sym_repeat; sym_for; sym_foreach;
   sym_try; sym_case; sym_block; sym_asm; sym_with; sym_raise; sym_statement; sym_goto;
   sym_labeledStatement; sym__statement]; STATE 15874 [sym_ifTr; sym_ifElseTr; sym_whileTr;
   sym_repeatTr; sym_forTr; sym_foreachTr; sym_tryTr; sym_caseTr]; STATE 15738 [sym_blockTr];
   STATE 15874 [sym_asmTr; sym_withTr; sym_raiseTr; sym_statementTr; sym_gotoTr;
   sym_labeledStatementTr; sym__statementTr]; STATE 13505 [sym_assignment];
   STATE 11905 [sym_varAssignDef]; STATE 13505 [sym_varDef; sym_constDef];
   STATE 1233 [sym_label]; STATE 8112 [sym__expr; sym_exprConditional]; STATE 7363 [sym__ref;
   sym_lambda; sym_inherited; sym_exprDot; sym_exprDeref; sym_exprAs; sym_exprTpl;
   sym_exprSubscript; sym_exprCall]; STATE 8112 [sym_exprBinary; sym_exprUnary];
   STATE 7363 [sym_exprParens; sym_exprBrackets; sym__literal; sym_literalString];
   STATE 6967 [sym__literalString; sym_literalChar]; STATE 7363 [sym_literalNumber];
   STATE 7660 [sym__literalInt; sym__literalFloat]; STATE 6967 [aux_sym_literalString_repeat1];
   ACTIONS 10704 [anon_sym_SEMI]; ACTIONS 9986 [anon_sym_LBRACK]; ACTIONS 9988 [anon_sym_LPAREN];
   ACTIONS 9990 [aux_sym__literalString_token1]; ACTIONS 9992 [anon_sym_POUND];
   ACTIONS 9994 [aux_sym__literalInt_token1]; ACTIONS 9996 [aux_sym__literalInt_token2;
   aux_sym__literalInt_token3]; ACTIONS 9994 [aux_sym__literalFloat_token1];
   ACTIONS 9998 [sym_kAdd; sym_kSub]; ACTIONS 10000 [sym_kAt]; ACTIONS 10002 [sym_kTrue;
   sym_kFalse]; ACTIONS 10004 [sym_labelNumber]; ACTIONS 3 [sym__space];
   ACTIONS 5 [sym_ppDirective]; ACTIONS 3 [sym_comment]; ACTIONS 10002 [sym_ppFragmentExpr];
   ACTIONS 9990 [sym__literalStringMultiline]; ACTIONS 10006 [sym_identifier];
   ACTIONS 10008 [sym_kSpecialize]; ACTIONS 10276 [sym_kAsm]; ACTIONS 10278 [sym_kBegin];
   ACTIONS 10280 [sym_kCase]; ACTIONS 10016 [sym_kConst]; ACTIONS 3272 [sym_kElse];
   ACTIONS 10282 [sym_kFor]; ACTIONS 10020 [sym_kFunction]; ACTIONS 10284 [sym_kGoto];
   ACTIONS 10572 [sym_kIf]; ACTIONS 10026 [sym_kInherited]; ACTIONS 10002 [sym_kNil];
   ACTIONS 10000 [sym_kNot]; ACTIONS 10020 [sym_kProcedure]; ACTIONS 10288 [sym_kRaise];
   ACTIONS 10290 [sym_kRepeat]; ACTIONS 10032 [sym_kString]; ACTIONS 10292 [sym_kTry];
   ACTIONS 10036 [sym_kVar]; ACTIONS 10294 [sym_kWhile]; ACTIONS 10296 [sym_kWith]].

(** State 1209. *)
Definition ts_parse_table_1209 : parse_row :=
  [ACTIONS 10706 [anon_sym_SEMI; anon_sym_COMMA; anon_sym_LBRACK];
   ACTIONS 10708 [anon_sym_LPAREN]; ACTIONS 10706 [aux_sym__literalString_token1;
   anon_sym_POUND]; ACTIONS 10708 [aux_sym__literalInt_token1];
   ACTIONS 10706 [aux_sym__literalInt_token2; aux_sym__literalInt_token3];
   ACTIONS 10708 [aux_sym__literalFloat_token1]; ACTIONS 10706 [aux_sym_ppUsesBlock_token1;
   aux_sym_ppUsesBlock_token2; aux_sym_ppUsesBlock_token3]; ACTIONS 10708 [sym_kAdd; sym_kSub];
   ACTIONS 10706 [sym_kAt; sym_kTrue; sym_kFalse]; ACTIONS 3 [sym__space];
   ACTIONS 5 [sym_ppDirective]; ACTIONS 3 [sym_comment]; ACTIONS 10706 [sym_ppFragmentExpr;
   sym__literalStringMultiline; sym_identifier; sym_kDefault; sym_kNodefault; sym_kDispId;
   sym_kGeneric; sym_kSpecialize; sym_kOperator; sym_kPublic; sym_kStatic; sym_kVirtual;
   sym_kAbstract; sym_kDynamic; sym_kOverride; sym_kOverload; sym_kReintroduce; sym_kStdcall;
   sym_kCdecl; sym_kCppdecl; sym_kPascal; sym_kRegister; sym_kMwpascal; sym_kMessage;
   sym_kDeprecated; sym_kExperimental; sym_kPlatform; sym_kUnimplemented; sym_kCvar; sym_kExport;
   sym_kFar; sym_kNear; sym_kSafecall; sym_kAssembler; sym_kNostackframe; sym_kInterrupt;
   sym_kNoreturn; sym_kIocheck; sym_kLocal; sym_kHardfloat; sym_kSoftfloat; sym_kMs_abi_default;
   sym_kMs_abi_cdecl; sym_kSaveregisters; sym_kSysv_abi_default; sym_kSysv_abi_cdecl;
   sym_kVectorcall; sym_kVarargs; sym_kWinapi; sym_kAlias; sym_kAsm; sym_kBegin; sym_kCase;
   sym_kClass; sym_kConst; sym_kConstructor; sym_kDestructor; sym_kElse; sym_kExports; sym_kFor;
   sym_kFunction; sym_kGoto; sym_kIf; sym_kInherited; sym_kLabel; sym_kNil; sym_kNot;
   sym_kProcedure; sym_kProperty; sym_kRaise; sym_kRepeat; sym_kResourcestring; sym_kString;
   sym_kThreadvar; sym_kTry; sym_kType; sym_kUses; sym_kVar; sym_kWhile; sym_kWith]].

(** State 1210. *)
Definition ts_parse_table_1210 : parse_row :=
  [ACTIONS 10710 [anon_sym_SEMI; anon_sym_COMMA; anon_sym_LBRACK];
   ACTIONS 10712 [anon_sym_LPAREN]; ACTIONS 10710 [aux_sym__literalString_token1;
   anon_sym_POUND]; ACTIONS 10712 [aux_sym__literalInt_token1];
   ACTIONS 10710 [aux_sym__literalInt_token2; aux_sym__literalInt_token3];
   ACTIONS 10712 [aux_sym__literalFloat_token1]; ACTIONS 10710 [aux_sym_ppUsesBlock_token1;
   aux_sym_ppUsesBlock_token2; aux_sym_ppUsesBlock_token3]; ACTIONS 10712 [sym_kAdd; sym_kSub];
   ACTIONS 10710 [sym_kAt; sym_kTrue; sym_kFalse]; ACTIONS 3 [sym__space];
   ACTIONS 5 [sym_ppDirective]; ACTIONS 3 [sym_comment]; ACTIONS 10710 [sym_ppFragmentExpr;
   sym__literalStringMultiline; sym_identifier; sym_kDefault; sym_kNodefault; sym_kDispId;
   sym_kGeneric; sym_kSpecialize; sym_kOperator; sym_kPublic; sym_kStatic; sym_kVirtual;
   sym_kAbstract; sym_kDynamic; sym_kOverride; sym_kOverload; sym_kReintroduce; sym_kStdcall;
   sym_kCdecl; sym_kCppdecl; sym_kPascal; sym_kRegister; sym_kMwpascal; sym_kMessage;
   sym_kDeprecated; sym_kExperimental; sym_kPlatform; sym_kUnimplemented; sym_kCvar; sym_kExport;
   sym_kFar; sym_kNear; sym_kSafecall; sym_kAssembler; sym_kNostackframe; sym_kInterrupt;
   sym_kNoreturn; sym_kIocheck; sym_kLocal; sym_kHardfloat; sym_kSoftfloat; sym_kMs_abi_default;
   sym_kMs_abi_cdecl; sym_kSaveregisters; sym_kSysv_abi_default; sym_kSysv_abi_cdecl;
   sym_kVectorcall; sym_kVarargs; sym_kWinapi; sym_kAlias; sym_kAsm; sym_kBegin; sym_kCase;
   sym_kClass; sym_kConst; sym_kConstructor; sym_kDestructor; sym_kElse; sym_kExports; sym_kFor;
   sym_kFunction; sym_kGoto; sym_kIf; sym_kInherited; sym_kLabel; sym_kNil; sym_kNot;
   sym_kProcedure; sym_kProperty; sym_kRaise; sym_kRepeat; sym_kResourcestring; sym_kString;
   sym_kThreadvar; sym_kTry; sym_kType; sym_kUses; sym_kVar; sym_kWhile; sym_kWith]].

(** State 1211. *)
Definition ts_parse_table_1211 : parse_row :=
  [STATE 6463 [sym_if]; STATE 6603 [sym_ifElse; sym_while; sym_repeat; sym_for; sym_foreach;
   sym_try; sym_case; sym_block; sym_asm; sym_with; sym_raise; sym_statement; sym_goto;
   sym__statement]; STATE 15037 [sym_ifTr; sym_ifElseTr; sym_whileTr; sym_repeatTr; sym_forTr;
   sym_foreachTr; sym_tryTr; sym_caseTr]; STATE 15738 [sym_blockTr]; STATE 15037 [sym_asmTr;
   sym_withTr; sym_raiseTr; sym_statementTr; sym_gotoTr; sym__statementTr];
   STATE 14065 [sym_assignment]; STATE 11905 [sym_varAssignDef]; STATE 14065 [sym_varDef;
   sym_constDef]; STATE 1239 [sym_label]; STATE 8094 [sym__expr; sym_exprConditional];
   STATE 7363 [sym__ref; sym_lambda; sym_inherited; sym_exprDot; sym_exprDeref; sym_exprAs;
   sym_exprTpl; sym_exprSubscript; sym_exprCall]; STATE 8094 [sym_exprBinary; sym_exprUnary];
   STATE 7363 [sym_exprParens; sym_exprBrackets; sym__literal; sym_literalString];
   STATE 6967 [sym__literalString; sym_literalChar]; STATE 7363 [sym_literalNumber];
   STATE 7660 [sym__literalInt; sym__literalFloat];
   STATE 1239 [aux_sym_labeledStatement_repeat1]; STATE 6967 [aux_sym_literalString_repeat1];
   ACTIONS 10714 [anon_sym_SEMI]; ACTIONS 9986 [anon_sym_LBRACK]; ACTIONS 9988 [anon_sym_LPAREN];
   ACTIONS 9990 [aux_sym__literalString_token1]; ACTIONS 9992 [anon_sym_POUND];
   ACTIONS 9994 [aux_sym__literalInt_token1]; ACTIONS 9996 [aux_sym__literalInt_token2;
   aux_sym__literalInt_token3]; ACTIONS 9994 [aux_sym__literalFloat_token1];
   ACTIONS 9998 [sym_kAdd; sym_kSub]; ACTIONS 10000 [sym_kAt]; ACTIONS 10002 [sym_kTrue;
   sym_kFalse]; ACTIONS 10004 [sym_labelNumber]; ACTIONS 3 [sym__space];
   ACTIONS 5 [sym_ppDirective]; ACTIONS 3 [sym_comment]; ACTIONS 10002 [sym_ppFragmentExpr];
   ACTIONS 9990 [sym__literalStringMultiline]; ACTIONS 10006 [sym_identifier];
   ACTIONS 10008 [sym_kSpecialize]; ACTIONS 10068 [sym_kAsm]; ACTIONS 10070 [sym_kBegin];
   ACTIONS 10072 [sym_kCase]; ACTIONS 10016 [sym_kConst]; ACTIONS 4301 [sym_kElse];
   ACTIONS 10074 [sym_kFor]; ACTIONS 10020 [sym_kFunction]; ACTIONS 10076 [sym_kGoto];
   ACTIONS 10078 [sym_kIf]; ACTIONS 10026 [sym_kInherited]; ACTIONS 10002 [sym_kNil];
   ACTIONS 10000 [sym_kNot]; ACTIONS 10020 [sym_kProcedure]; ACTIONS 10080 [sym_kRaise];
   ACTIONS 10082 [sym_kRepeat]; ACTIONS 10032 [sym_kString]; ACTIONS 10084 [sym_kTry];
   ACTIONS 10036 [sym_kVar]; ACTIONS 10086 [sym_kWhile]; ACTIONS 10088 [sym_kWith]].

(** State 1212. *)
Definition ts_parse_table_1212 : parse_row :=
  [STATE 14637 [sym_if]; STATE 15727 [sym_ifElse; sym_while; sym_repeat; sym_for; sym_foreach;
   sym_try; sym_case; sym_block; sym_asm; sym_with; sym_raise; sym_statement; sym_goto;
   sym__statement]; STATE 14724 [sym_ifTr; sym_ifElseTr; sym_whileTr; sym_repeatTr; sym_forTr;
   sym_foreachTr; sym_tryTr; sym_caseTr]; STATE 15738 [sym_blockTr]; STATE 14724 [sym_asmTr;
   sym_withTr; sym_raiseTr; sym_statementTr; sym_gotoTr; sym__statementTr];
   STATE 13492 [sym_assignment]; STATE 11905 [sym_varAssignDef]; STATE 13492 [sym_varDef;
   sym_constDef]; STATE 6187 [sym_label]; STATE 7925 [sym__expr; sym_exprConditional];
   STATE 7363 [sym__ref; sym_lambda; sym_inherited; sym_exprDot; sym_exprDeref; sym_exprAs;
   sym_exprTpl; sym_exprSubscript; sym_exprCall]; STATE 7925 [sym_exprBinary; sym_exprUnary];
   STATE 7363 [sym_exprParens; sym_exprBrackets; sym__literal; sym_literalString];
   STATE 6967 [sym__literalString; sym_literalChar]; STATE 7363 [sym_literalNumber];
   STATE 7660 [sym__literalInt; sym__literalFloat];
   STATE 6187 [aux_sym_labeledStatement_repeat1]; STATE 6967 [aux_sym_literalString_repeat1];
   ACTIONS 10716 [anon_sym_SEMI]; ACTIONS 9986 [anon_sym_LBRACK]; ACTIONS 9988 [anon_sym_LPAREN];
   ACTIONS 9990 [aux_sym__literalString_token1]; ACTIONS 9992 [anon_sym_POUND];
   ACTIONS 9994 [aux_sym__literalInt_token1]; ACTIONS 9996 [aux_sym__literalInt_token2;
   aux_sym__literalInt_token3]; ACTIONS 9994 [aux_sym__literalFloat_token1];
   ACTIONS 9998 [sym_kAdd; sym_kSub]; ACTIONS 10000 [sym_kAt]; ACTIONS 10002 [sym_kTrue;
   sym_kFalse]; ACTIONS 10004 [sym_labelNumber]; ACTIONS 3 [sym__space];
   ACTIONS 5 [sym_ppDirective]; ACTIONS 3 [sym_comment]; ACTIONS 10002 [sym_ppFragmentExpr];
   ACTIONS 9990 [sym__literalStringMultiline]; ACTIONS 10006 [sym_identifier];
   ACTIONS 10008 [sym_kSpecialize]; ACTIONS 10108 [sym_kAsm]; ACTIONS 10110 [sym_kBegin];
   ACTIONS 10112 [sym_kCase]; ACTIONS 10016 [sym_kConst]; ACTIONS 4439 [sym_kElse];
   ACTIONS 10116 [sym_kFor]; ACTIONS 10020 [sym_kFunction]; ACTIONS 10118 [sym_kGoto];
   ACTIONS 10228 [sym_kIf]; ACTIONS 10026 [sym_kInherited]; ACTIONS 10002 [sym_kNil];
   ACTIONS 10000 [sym_kNot]; ACTIONS 10020 [sym_kProcedure]; ACTIONS 10122 [sym_kRaise];
   ACTIONS 10124 [sym_kRepeat]; ACTIONS 10032 [sym_kString]; ACTIONS 10126 [sym_kTry];
   ACTIONS 10036 [sym_kVar]; ACTIONS 10128 [sym_kWhile]; ACTIONS 10130 [sym_kWith]].

(** State 1213. *)
Definition ts_parse_table_1213 : parse_row :=
  [STATE 6213 [sym_if]; STATE 6285 [sym_ifElse; sym_while; sym_repeat; sym_for; sym_foreach;
   sym_try; sym_case; sym_block; sym_asm; sym_with; sym_raise; sym_statement; sym_goto;
   sym__statement]; STATE 14952 [sym_ifTr; sym_ifElseTr; sym_whileTr; sym_repeatTr; sym_forTr;
   sym_foreachTr; sym_tryTr; sym_caseTr]; STATE 14251 [sym_blockTr]; STATE 14952 [sym_asmTr;
   sym_withTr; sym_raiseTr; sym_statementTr; sym_gotoTr; sym__statementTr];
   STATE 13915 [sym_assignment]; STATE 11785 [sym_varAssignDef]; STATE 13915 [sym_varDef;
   sym_constDef]; STATE 1246 [sym_label]; STATE 8019 [sym__expr; sym_exprConditional];
   STATE 7478 [sym__ref; sym_lambda; sym_inherited; sym_exprDot; sym_exprDeref; sym_exprAs;
   sym_exprTpl; sym_exprSubscript; sym_exprCall]; STATE 8019 [sym_exprBinary; sym_exprUnary];
   STATE 7478 [sym_exprParens; sym_exprBrackets; sym__literal; sym_literalString];
   STATE 6664 [sym__literalString; sym_literalChar]; STATE 7478 [sym_literalNumber];
   STATE 7742 [sym__literalInt; sym__literalFloat];
   STATE 1246 [aux_sym_labeledStatement_repeat1]; STATE 6664 [aux_sym_literalString_repeat1];
   ACTIONS 10574 [anon_sym_SEMI]; ACTIONS 399 [anon_sym_LBRACK]; ACTIONS 401 [anon_sym_LPAREN];
   ACTIONS 403 [aux_sym__literalString_token1]; ACTIONS 405 [anon_sym_POUND];
   ACTIONS 407 [aux_sym__literalInt_token1]; ACTIONS 409 [aux_sym__literalInt_token2;
   aux_sym__literalInt_token3]; ACTIONS 407 [aux_sym__literalFloat_token1];
   ACTIONS 413 [sym_kAdd; sym_kSub]; ACTIONS 415 [sym_kAt]; ACTIONS 417 [sym_kTrue; sym_kFalse];
   ACTIONS 10098 [sym_labelNumber]; ACTIONS 3 [sym__space]; ACTIONS 5 [sym_ppDirective];
   ACTIONS 3 [sym_comment]; ACTIONS 417 [sym_ppFragmentExpr];
   ACTIONS 403 [sym__literalStringMultiline]; ACTIONS 10100 [sym_identifier];
   ACTIONS 423 [sym_kSpecialize]; ACTIONS 427 [sym_kAsm]; ACTIONS 429 [sym_kBegin];
   ACTIONS 431 [sym_kCase]; ACTIONS 433 [sym_kConst]; ACTIONS 4301 [sym_kEnd];
   ACTIONS 437 [sym_kFor]; ACTIONS 439 [sym_kFunction]; ACTIONS 441 [sym_kGoto];
   ACTIONS 443 [sym_kIf]; ACTIONS 445 [sym_kInherited]; ACTIONS 417 [sym_kNil];
   ACTIONS 415 [sym_kNot]; ACTIONS 439 [sym_kProcedure]; ACTIONS 447 [sym_kRaise];
   ACTIONS 449 [sym_kRepeat]; ACTIONS 451 [sym_kString]; ACTIONS 453 [sym_kTry];
   ACTIONS 455 [sym_kVar]; ACTIONS 457 [sym_kWhile]; ACTIONS 459 [sym_kWith]].

(** State 1214. *)
Definition ts_parse_table_1214 : parse_row :=
  [ACTIONS 9868 [anon_sym_SEMI; anon_sym_COMMA; anon_sym_LBRACK]; ACTIONS 9870 [anon_sym_LPAREN];
   ACTIONS 9868 [aux_sym__literalString_token1; anon_sym_POUND];
   ACTIONS 9870 [aux_sym__literalInt_token1]; ACTIONS 9868 [aux_sym__literalInt_token2;
   aux_sym__literalInt_token3]; ACTIONS 9870 [aux_sym__literalFloat_token1];
   ACTIONS 9868 [aux_sym_ppUsesBlock_token1; aux_sym_ppUsesBlock_token2;
   aux_sym_ppUsesBlock_token3]; ACTIONS 9870 [sym_kAdd; sym_kSub]; ACTIONS 9868 [sym_kAt;
   sym_kTrue; sym_kFalse]; ACTIONS 3 [sym__space]; ACTIONS 5 [sym_ppDirective];
   ACTIONS 3 [sym_comment]; ACTIONS 9868 [sym_ppFragmentExpr; sym__literalStringMultiline;
   sym_identifier; sym_kDefault; sym_kNodefault; sym_kDispId; sym_kGeneric; sym_kSpecialize;
   sym_kOperator; sym_kPublic; sym_kStatic; sym_kVirtual; sym_kAbstract; sym_kDynamic;
   sym_kOverride; sym_kOverload; sym_kReintroduce; sym_kStdcall; sym_kCdecl; sym_kCppdecl;
   sym_kPascal; sym_kRegister; sym_kMwpascal; sym_kMessage; sym_kDeprecated; sym_kExperimental;
   sym_kPlatform; sym_kUnimplemented; sym_kCvar; sym_kExport; sym_kFar; sym_kNear; sym_kSafecall;
   sym_kAssembler; sym_kNostackframe; sym_kInterrupt; sym_kNoreturn; sym_kIocheck; sym_kLocal;
   sym_kHardfloat; sym_kSoftfloat; sym_kMs_abi_default; sym_kMs_abi_cdecl; sym_kSaveregisters;
   sym_kSysv_abi_default; sym_kSysv_abi_cdecl; sym_kVectorcall; sym_kVarargs; sym_kWinapi;
   sym_kAlias; sym_kAsm; sym_kBegin; sym_kCase; sym_kClass; sym_kConst; sym_kConstructor;
   sym_kDestructor; sym_kExports; sym_kFor; sym_kFunction; sym_kGoto; sym_kIf; sym_kInherited;
   sym_kInline; sym_kLabel; sym_kNil; sym_kNot; sym_kProcedure; sym_kProperty; sym_kRaise;
   sym_kRepeat; sym_kResourcestring; sym_kString; sym_kThreadvar; sym_kTry; sym_kType; sym_kUses;
   sym_kVar; sym_kWhile; sym_kWith]].

(** State 1215. *)
Definition ts_parse_table_1215 : parse_row :=
  [ACTIONS 9910 [anon_sym_SEMI; anon_sym_COMMA; anon_sym_LBRACK]; ACTIONS 9912 [anon_sym_LPAREN];
   ACTIONS 9910 [aux_sym__literalString_token1; anon_sym_POUND];
   ACTIONS 9912 [aux_sym__literalInt_token1]; ACTIONS 9910 [aux_sym__literalInt_token2;
   aux_sym__literalInt_token3]; ACTIONS 9912 [aux_sym__literalFloat_token1];
   ACTIONS 9910 [aux_sym_ppUsesBlock_token1; aux_sym_ppUsesBlock_token2;
   aux_sym_ppUsesBlock_token3]; ACTIONS 9912 [sym_kAdd; sym_kSub]; ACTIONS 9910 [sym_kAt;
   sym_kTrue; sym_kFalse]; ACTIONS 3 [sym__space]; ACTIONS 5 [sym_ppDirective];
   ACTIONS 3 [sym_comment]; ACTIONS 9910 [sym_ppFragmentExpr; sym__literalStringMultiline;
   sym_identifier; sym_kDefault; sym_kNodefault; sym_kDispId; sym_kGeneric; sym_kSpecialize;
   sym_kOperator; sym_kPublic; sym_kStatic; sym_kVirtual; sym_kAbstract; sym_kDynamic;
   sym_kOverride; sym_kOverload; sym_kReintroduce; sym_kStdcall; sym_kCdecl; sym_kCppdecl;
   sym_kPascal; sym_kRegister; sym_kMwpascal; sym_kMessage; sym_kDeprecated; sym_kExperimental;
   sym_kPlatform; sym_kUnimplemented; sym_kCvar; sym_kExport; sym_kFar; sym_kNear; sym_kSafecall;
   sym_kAssembler; sym_kNostackframe; sym_kInterrupt; sym_kNoreturn; sym_kIocheck; sym_kLocal;
   sym_kHardfloat; sym_kSoftfloat; sym_kMs_abi_default; sym_kMs_abi_cdecl; sym_kSaveregisters;
   sym_kSysv_abi_default; sym_kSysv_abi_cdecl; sym_kVectorcall; sym_kVarargs; sym_kWinapi;
   sym_kAlias; sym_kAsm; sym_kBegin; sym_kCase; sym_kClass; sym_kConst; sym_kConstructor;
   sym_kDestructor; sym_kExports; sym_kFor; sym_kFunction; sym_kGoto; sym_kIf; sym_kInherited;
   sym_kInline; sym_kLabel; sym_kNil; sym_kNot; sym_kProcedure; sym_kProperty; sym_kRaise;
   sym_kRepeat; sym_kResourcestring; sym_kString; sym_kThreadvar; sym_kTry; sym_kType; sym_kUses;
   sym_kVar; sym_kWhile; sym_kWith]].

(** State 1216. *)
Definition ts_parse_table_1216 : parse_row :=
  [STATE 1277 [sym_if]; STATE 1284 [sym_ifElse; sym_while; sym_repeat; sym_for; sym_foreach;
   sym_try; sym_case; sym_block; sym_asm; sym_with; sym_raise; sym_statement; sym_goto;
   sym__statement]; STATE 15037 [sym_ifTr; sym_ifElseTr; sym_whileTr; sym_repeatTr; sym_forTr;
   sym_foreachTr; sym_tryTr; sym_caseTr]; STATE 15738 [sym_blockTr]; STATE 15037 [sym_asmTr;
   sym_withTr; sym_raiseTr; sym_statementTr; sym_gotoTr; sym__statementTr];
   STATE 13593 [sym_assignment]; STATE 11905 [sym_varAssignDef]; STATE 13593 [sym_varDef;
   sym_constDef]; STATE 1243 [sym_label]; STATE 8058 [sym__expr; sym_exprConditional];
   STATE 7363 [sym__ref; sym_lambda; sym_inherited; sym_exprDot; sym_exprDeref; sym_exprAs;
   sym_exprTpl; sym_exprSubscript; sym_exprCall]; STATE 8058 [sym_exprBinary; sym_exprUnary];
   STATE 7363 [sym_exprParens; sym_exprBrackets; sym__literal; sym_literalString];
   STATE 6967 [sym__literalString; sym_literalChar]; STATE 7363 [sym_literalNumber];
   STATE 7660 [sym__literalInt; sym__literalFloat];
   STATE 1243 [aux_sym_labeledStatement_repeat1]; STATE 6967 [aux_sym_literalString_repeat1];
   ACTIONS 10718 [anon_sym_SEMI]; ACTIONS 9986 [anon_sym_LBRACK]; ACTIONS 9988 [anon_sym_LPAREN];
   ACTIONS 9990 [aux_sym__literalString_token1]; ACTIONS 9992 [anon_sym_POUND];
   ACTIONS 9994 [aux_sym__literalInt_token1]; ACTIONS 9996 [aux_sym__literalInt_token2;
   aux_sym__literalInt_token3]; ACTIONS 9994 [aux_sym__literalFloat_token1];
   ACTIONS 9998 [sym_kAdd; sym_kSub]; ACTIONS 10000 [sym_kAt]; ACTIONS 10002 [sym_kTrue;
   sym_kFalse]; ACTIONS 10004 [sym_labelNumber]; ACTIONS 3 [sym__space];
   ACTIONS 5 [sym_ppDirective]; ACTIONS 3 [sym_comment]; ACTIONS 10002 [sym_ppFragmentExpr];
   ACTIONS 9990 [sym__literalStringMultiline]; ACTIONS 10006 [sym_identifier];
   ACTIONS 10008 [sym_kSpecialize]; ACTIONS 10422 [sym_kAsm]; ACTIONS 10424 [sym_kBegin];
   ACTIONS 10426 [sym_kCase]; ACTIONS 10016 [sym_kConst]; ACTIONS 4301 [sym_kElse];
   ACTIONS 10428 [sym_kFor]; ACTIONS 10020 [sym_kFunction]; ACTIONS 10430 [sym_kGoto];
   ACTIONS 10432 [sym_kIf]; ACTIONS 10026 [sym_kInherited]; ACTIONS 10002 [sym_kNil];
   ACTIONS 10000 [sym_kNot]; ACTIONS 10020 [sym_kProcedure]; ACTIONS 10434 [sym_kRaise];
   ACTIONS 10436 [sym_kRepeat]; ACTIONS 10032 [sym_kString]; ACTIONS 10438 [sym_kTry];
   ACTIONS 10036 [sym_kVar]; ACTIONS 10440 [sym_kWhile]; ACTIONS 10442 [sym_kWith]].

(** State 1217. *)
Definition ts_parse_table_1217 : parse_row :=
  [ACTIONS 10720 [anon_sym_SEMI; anon_sym_COMMA; anon_sym_LBRACK];
   ACTIONS 10722 [anon_sym_LPAREN]; ACTIONS 10720 [aux_sym__literalString_token1;
   anon_sym_POUND]; ACTIONS 10722 [aux_sym__literalInt_token1];
   ACTIONS 10720 [aux_sym__literalInt_token2; aux_sym__literalInt_token3];
   ACTIONS 10722 [aux_sym__literalFloat_token1]; ACTIONS 10720 [aux_sym_ppUsesBlock_token1;
   aux_sym_ppUsesBlock_token2; aux_sym_ppUsesBlock_token3]; ACTIONS 10722 [sym_kAdd; sym_kSub];
   ACTIONS 10720 [sym_kAt; sym_kTrue; sym_kFalse]; ACTIONS 3 [sym__space];
   ACTIONS 5 [sym_ppDirective]; ACTIONS 3 [sym_comment]; ACTIONS 10720 [sym_ppFragmentExpr;
   sym__literalStringMultiline; sym_identifier; sym_kDefault; sym_kNodefault; sym_kDispId;
   sym_kGeneric; sym_kSpecialize; sym_kOperator; sym_kPublic; sym_kStatic; sym_kVirtual;
   sym_kAbstract; sym_kDynamic; sym_kOverride; sym_kOverload; sym_kReintroduce; sym_kStdcall;
   sym_kCdecl; sym_kCppdecl; sym_kPascal; sym_kRegister; sym_kMwpascal; sym_kMessage;
   sym_kDeprecated; sym_kExperimental; sym_kPlatform; sym_kUnimplemented; sym_kCvar; sym_kExport;
   sym_kFar; sym_kNear; sym_kSafecall; sym_kAssembler; sym_kNostackframe; sym_kInterrupt;
   sym_kNoreturn; sym_kIocheck; sym_kLocal; sym_kHardfloat; sym_kSoftfloat; sym_kMs_abi_default;
   sym_kMs_abi_cdecl; sym_kSaveregisters; sym_kSysv_abi_default; sym_kSysv_abi_cdecl;
   sym_kVectorcall; sym_kVarargs; sym_kWinapi; sym_kAlias; sym_kAsm; sym_kBegin; sym_kCase;
   sym_kClass; sym_kConst; sym_kConstructor; sym_kDestructor]; ACTIONS 10724 [sym_kElse];
   ACTIONS 10720 [sym_kExports; sym_kFor; sym_kFunction; sym_kGoto; sym_kIf; sym_kInherited;
   sym_kLabel; sym_kNil; sym_kNot; sym_kProcedure; sym_kProperty; sym_kRaise; sym_kRepeat;
   sym_kResourcestring; sym_kString; sym_kThreadvar; sym_kTry; sym_kType; sym_kUses; sym_kVar;
   sym_kWhile; sym_kWith]].

(** State 1218. *)
Definition ts_parse_table_1218 : parse_row :=
  [ACTIONS 9946 [anon_sym_SEMI; anon_sym_COMMA; anon_sym_LBRACK]; ACTIONS 9948 [anon_sym_LPAREN];
   ACTIONS 9946 [aux_sym__literalString_token1; anon_sym_POUND];
   ACTIONS 9948 [aux_sym__literalInt_token1]; ACTIONS 9946 [aux_sym__literalInt_token2;
   aux_sym__literalInt_token3]; ACTIONS 9948 [aux_sym__literalFloat_token1];
   ACTIONS 9946 [aux_sym_ppUsesBlock_token1; aux_sym_ppUsesBlock_token2;
   aux_sym_ppUsesBlock_token3]; ACTIONS 9948 [sym_kAdd; sym_kSub]; ACTIONS 9946 [sym_kAt;
   sym_kTrue; sym_kFalse]; ACTIONS 3 [sym__space]; ACTIONS 5 [sym_ppDirective];
   ACTIONS 3 [sym_comment]; ACTIONS 9946 [sym_ppFragmentExpr; sym__literalStringMultiline;
   sym_identifier; sym_kDefault; sym_kNodefault; sym_kDispId; sym_kGeneric; sym_kSpecialize;
   sym_kOperator; sym_kPublic; sym_kStatic; sym_kVirtual; sym_kAbstract; sym_kDynamic;
   sym_kOverride; sym_kOverload; sym_kReintroduce; sym_kStdcall; sym_kCdecl; sym_kCppdecl;
   sym_kPascal; sym_kRegister; sym_kMwpascal; sym_kMessage; sym_kDeprecated; sym_kExperimental;
   sym_kPlatform; sym_kUnimplemented; sym_kCvar; sym_kExport; sym_kFar; sym_kNear; sym_kSafecall;
   sym_kAssembler; sym_kNostackframe; sym_kInterrupt; sym_kNoreturn; sym_kIocheck; sym_kLocal;
   sym_kHardfloat; sym_kSoftfloat; sym_kMs_abi_default; sym_kMs_abi_cdecl; sym_kSaveregisters;
   sym_kSysv_abi_default; sym_kSysv_abi_cdecl; sym_kVectorcall; sym_kVarargs; sym_kWinapi;
   sym_kAlias; sym_kAsm; sym_kBegin; sym_kCase; sym_kClass; sym_kConst; sym_kConstructor;
   sym_kDestructor; sym_kExports; sym_kFor; sym_kFunction; sym_kGoto; sym_kIf; sym_kInherited;
   sym_kInline; sym_kLabel; sym_kNil; sym_kNot; sym_kProcedure; sym_kProperty; sym_kRaise;
   sym_kRepeat; sym_kResourcestring; sym_kString; sym_kThreadvar; sym_kTry; sym_kType; sym_kUses;
   sym_kVar; sym_kWhile; sym_kWith]].

(** State 1219. *)
Definition ts_parse_table_1219 : parse_row :=
  [STATE 9071 [sym_if]; STATE 9348 [sym_ifElse; sym_while; sym_repeat; sym_for; sym_foreach;
   sym_try; sym_case; sym_block; sym_asm; sym_with; sym_raise; sym_statement; sym_goto;
   sym__statement]; STATE 14724 [sym_ifTr; sym_ifElseTr; sym_whileTr; sym_repeatTr; sym_forTr;
   sym_foreachTr; sym_tryTr; sym_caseTr]; STATE 15738 [sym_blockTr]; STATE 14724 [sym_asmTr;
   sym_withTr; sym_raiseTr; sym_statementTr; sym_gotoTr; sym__statementTr];
   STATE 13921 [sym_assignment]; STATE 11905 [sym_varAssignDef]; STATE 13921 [sym_varDef;
   sym_constDef]; STATE 6187 [sym_label]; STATE 8114 [sym__expr; sym_exprConditional];
   STATE 7363 [sym__ref; sym_lambda; sym_inherited; sym_exprDot; sym_exprDeref; sym_exprAs;
   sym_exprTpl; sym_exprSubscript; sym_exprCall]; STATE 8114 [sym_exprBinary; sym_exprUnary];
   STATE 7363 [sym_exprParens; sym_exprBrackets; sym__literal; sym_literalString];
   STATE 6967 [sym__literalString; sym_literalChar]; STATE 7363 [sym_literalNumber];
   STATE 7660 [sym__literalInt; sym__literalFloat];
   STATE 6187 [aux_sym_labeledStatement_repeat1]; STATE 6967 [aux_sym_literalString_repeat1];
   ACTIONS 9714 [anon_sym_SEMI]; ACTIONS 9986 [anon_sym_LBRACK]; ACTIONS 9988 [anon_sym_LPAREN];
   ACTIONS 9990 [aux_sym__literalString_token1]; ACTIONS 9992 [anon_sym_POUND];
   ACTIONS 9994 [aux_sym__literalInt_token1]; ACTIONS 9996 [aux_sym__literalInt_token2;
   aux_sym__literalInt_token3]; ACTIONS 9994 [aux_sym__literalFloat_token1];
   ACTIONS 9998 [sym_kAdd; sym_kSub]; ACTIONS 10000 [sym_kAt]; ACTIONS 10002 [sym_kTrue;
   sym_kFalse]; ACTIONS 10004 [sym_labelNumber]; ACTIONS 3 [sym__space];
   ACTIONS 5 [sym_ppDirective]; ACTIONS 3 [sym_comment]; ACTIONS 10002 [sym_ppFragmentExpr];
   ACTIONS 9990 [sym__literalStringMultiline]; ACTIONS 10006 [sym_identifier];
   ACTIONS 10008 [sym_kSpecialize]; ACTIONS 10236 [sym_kAsm]; ACTIONS 10238 [sym_kBegin];
   ACTIONS 10240 [sym_kCase]; ACTIONS 10016 [sym_kConst]; ACTIONS 4439 [sym_kElse];
   ACTIONS 10244 [sym_kFor]; ACTIONS 10020 [sym_kFunction]; ACTIONS 10246 [sym_kGoto];
   ACTIONS 10248 [sym_kIf]; ACTIONS 10026 [sym_kInherited]; ACTIONS 10002 [sym_kNil];
   ACTIONS 10000 [sym_kNot]; ACTIONS 10020 [sym_kProcedure]; ACTIONS 10250 [sym_kRaise];
   ACTIONS 10252 [sym_kRepeat]; ACTIONS 10032 [sym_kString]; ACTIONS 10254 [sym_kTry];
   ACTIONS 10036 [sym_kVar]; ACTIONS 10256 [sym_kWhile]; ACTIONS 10258 [sym_kWith]].

(** State 1220. *)
Definition ts_parse_table_1220 : parse_row :=
  [STATE 1310 [sym_if]; STATE 1365 [sym_ifElse; sym_while; sym_repeat; sym_for; sym_foreach;
   sym_try; sym_case; sym_block; sym_asm; sym_with; sym_raise; sym_statement; sym_goto;
   sym__statement]; STATE 15037 [sym_ifTr; sym_ifElseTr; sym_whileTr; sym_repeatTr; sym_forTr;
   sym_foreachTr; sym_tryTr; sym_caseTr]; STATE 15738 [sym_blockTr]; STATE 15037 [sym_asmTr;
   sym_withTr; sym_raiseTr; sym_statementTr; sym_gotoTr; sym__statementTr];
   STATE 13934 [sym_assignment]; STATE 11905 [sym_varAssignDef]; STATE 13934 [sym_varDef;
   sym_constDef]; STATE 1223 [sym_label]; STATE 8173 [sym__expr; sym_exprConditional];
   STATE 7363 [sym__ref; sym_lambda; sym_inherited; sym_exprDot; sym_exprDeref; sym_exprAs;
   sym_exprTpl; sym_exprSubscript; sym_exprCall]; STATE 8173 [sym_exprBinary; sym_exprUnary];
   STATE 7363 [sym_exprParens; sym_exprBrackets; sym__literal; sym_literalString];
   STATE 6967 [sym__literalString; sym_literalChar]; STATE 7363 [sym_literalNumber];
   STATE 7660 [sym__literalInt; sym__literalFloat];
   STATE 1223 [aux_sym_labeledStatement_repeat1]; STATE 6967 [aux_sym_literalString_repeat1];
   ACTIONS 10726 [anon_sym_SEMI]; ACTIONS 9986 [anon_sym_LBRACK]; ACTIONS 9988 [anon_sym_LPAREN];
   ACTIONS 9990 [aux_sym__literalString_token1]; ACTIONS 9992 [anon_sym_POUND];
   ACTIONS 9994 [aux_sym__literalInt_token1]; ACTIONS 9996 [aux_sym__literalInt_token2;
   aux_sym__literalInt_token3]; ACTIONS 9994 [aux_sym__literalFloat_token1];
   ACTIONS 9998 [sym_kAdd; sym_kSub]; ACTIONS 10000 [sym_kAt]; ACTIONS 10002 [sym_kTrue;
   sym_kFalse]; ACTIONS 10004 [sym_labelNumber]; ACTIONS 3 [sym__space];
   ACTIONS 5 [sym_ppDirective]; ACTIONS 3 [sym_comment]; ACTIONS 10002 [sym_ppFragmentExpr];
   ACTIONS 9990 [sym__literalStringMultiline]; ACTIONS 10006 [sym_identifier];
   ACTIONS 10008 [sym_kSpecialize]; ACTIONS 10336 [sym_kAsm]; ACTIONS 10338 [sym_kBegin];
   ACTIONS 10340 [sym_kCase]; ACTIONS 10016 [sym_kConst]; ACTIONS 4301 [sym_kElse];
   ACTIONS 10344 [sym_kFor]; ACTIONS 10020 [sym_kFunction]; ACTIONS 10346 [sym_kGoto];
   ACTIONS 10544 [sym_kIf]; ACTIONS 10026 [sym_kInherited]; ACTIONS 10002 [sym_kNil];
   ACTIONS 10000 [sym_kNot]; ACTIONS 10020 [sym_kProcedure]; ACTIONS 10350 [sym_kRaise];
   ACTIONS 10352 [sym_kRepeat]; ACTIONS 10032 [sym_kString]; ACTIONS 10354 [sym_kTry];
   ACTIONS 10036 [sym_kVar]; ACTIONS 10356 [sym_kWhile]; ACTIONS 10358 [sym_kWith]].

(** State 1221. *)
Definition ts_parse_table_1221 : parse_row :=
  [ACTIONS 9974 [anon_sym_SEMI; anon_sym_COMMA; anon_sym_LBRACK]; ACTIONS 9976 [anon_sym_LPAREN];
   ACTIONS 9974 [aux_sym__literalString_token1; anon_sym_POUND];
   ACTIONS 9976 [aux_sym__literalInt_token1]; ACTIONS 9974 [aux_sym__literalInt_token2;
   aux_sym__literalInt_token3]; ACTIONS 9976 [aux_sym__literalFloat_token1];
   ACTIONS 9974 [aux_sym_ppUsesBlock_token1; aux_sym_ppUsesBlock_token2;
   aux_sym_ppUsesBlock_token3]; ACTIONS 9976 [sym_kAdd; sym_kSub]; ACTIONS 9974 [sym_kAt;
   sym_kTrue; sym_kFalse]; ACTIONS 3 [sym__space]; ACTIONS 5 [sym_ppDirective];
   ACTIONS 3 [sym_comment]; ACTIONS 9974 [sym_ppFragmentExpr; sym__literalStringMultiline;
   sym_identifier; sym_kDefault; sym_kNodefault; sym_kDispId; sym_kGeneric; sym_kSpecialize;
   sym_kOperator; sym_kPublic; sym_kStatic; sym_kVirtual; sym_kAbstract; sym_kDynamic;
   sym_kOverride; sym_kOverload; sym_kReintroduce; sym_kStdcall; sym_kCdecl; sym_kCppdecl;
   sym_kPascal; sym_kRegister; sym_kMwpascal; sym_kMessage; sym_kDeprecated; sym_kExperimental;
   sym_kPlatform; sym_kUnimplemented; sym_kCvar; sym_kExport; sym_kFar; sym_kNear; sym_kSafecall;
   sym_kAssembler; sym_kNostackframe; sym_kInterrupt; sym_kNoreturn; sym_kIocheck; sym_kLocal;
   sym_kHardfloat; sym_kSoftfloat; sym_kMs_abi_default; sym_kMs_abi_cdecl; sym_kSaveregisters;
   sym_kSysv_abi_default; sym_kSysv_abi_cdecl; sym_kVectorcall; sym_kVarargs; sym_kWinapi;
   sym_kAlias; sym_kAsm; sym_kBegin; sym_kCase; sym_kClass; sym_kConst; sym_kConstructor;
   sym_kDestructor; sym_kExports; sym_kFor; sym_kFunction; sym_kGoto; sym_kIf; sym_kInherited;
   sym_kInline; sym_kLabel; sym_kNil; sym_kNot; sym_kProcedure; sym_kProperty; sym_kRaise;
   sym_kRepeat; sym_kResourcestring; sym_kString; sym_kThreadvar; sym_kTry; sym_kType; sym_kUses;
   sym_kVar; sym_kWhile; sym_kWith]].

(** State 1222. *)
Definition ts_parse_table_1222 : parse_row :=
  [STATE 5864 [sym_if]; STATE 5814 [sym_ifElse; sym_while; sym_repeat; sym_for; sym_foreach;
   sym_try; sym_case; sym_block; sym_asm; sym_with; sym_raise; sym_statement; sym_goto;
   sym__statement]; STATE 14724 [sym_ifTr; sym_ifElseTr; sym_whileTr; sym_repeatTr; sym_forTr;
   sym_foreachTr; sym_tryTr; sym_caseTr]; STATE 15738 [sym_blockTr]; STATE 14724 [sym_asmTr;
   sym_withTr; sym_raiseTr; sym_statementTr; sym_gotoTr; sym__statementTr];
   STATE 13343 [sym_assignment]; STATE 11905 [sym_varAssignDef]; STATE 13343 [sym_varDef;
   sym_constDef]; STATE 6187 [sym_label]; STATE 7969 [sym__expr; sym_exprConditional];
   STATE 7363 [sym__ref; sym_lambda; sym_inherited; sym_exprDot; sym_exprDeref; sym_exprAs;
   sym_exprTpl; sym_exprSubscript; sym_exprCall]; STATE 7969 [sym_exprBinary; sym_exprUnary];
   STATE 7363 [sym_exprParens; sym_exprBrackets; sym__literal; sym_literalString];
   STATE 6967 [sym__literalString; sym_literalChar]; STATE 7363 [sym_literalNumber];
   STATE 7660 [sym__literalInt; sym__literalFloat];
   STATE 6187 [aux_sym_labeledStatement_repeat1]; STATE 6967 [aux_sym_literalString_repeat1];
   ACTIONS 10728 [anon_sym_SEMI]; ACTIONS 9986 [anon_sym_LBRACK]; ACTIONS 9988 [anon_sym_LPAREN];
   ACTIONS 9990 [aux_sym__literalString_token1]; ACTIONS 9992 [anon_sym_POUND];
   ACTIONS 9994 [aux_sym__literalInt_token1]; ACTIONS 9996 [aux_sym__literalInt_token2;
   aux_sym__literalInt_token3]; ACTIONS 9994 [aux_sym__literalFloat_token1];
   ACTIONS 9998 [sym_kAdd; sym_kSub]; ACTIONS 10000 [sym_kAt]; ACTIONS 10002 [sym_kTrue;
   sym_kFalse]; ACTIONS 10004 [sym_labelNumber]; ACTIONS 3 [sym__space];
   ACTIONS 5 [sym_ppDirective]; ACTIONS 3 [sym_comment]; ACTIONS 10002 [sym_ppFragmentExpr];
   ACTIONS 9990 [sym__literalStringMultiline]; ACTIONS 10006 [sym_identifier];
   ACTIONS 10008 [sym_kSpecialize]; ACTIONS 10466 [sym_kAsm]; ACTIONS 10468 [sym_kBegin];
   ACTIONS 10470 [sym_kCase]; ACTIONS 10016 [sym_kConst]; ACTIONS 4439 [sym_kElse];
   ACTIONS 10472 [sym_kFor]; ACTIONS 10020 [sym_kFunction]; ACTIONS 10474 [sym_kGoto];
   ACTIONS 10476 [sym_kIf]; ACTIONS 10026 [sym_kInherited]; ACTIONS 10002 [sym_kNil];
   ACTIONS 10000 [sym_kNot]; ACTIONS 10020 [sym_kProcedure]; ACTIONS 10478 [sym_kRaise];
   ACTIONS 10480 [sym_kRepeat]; ACTIONS 10032 [sym_kString]; ACTIONS 10482 [sym_kTry];
   ACTIONS 10036 [sym_kVar]; ACTIONS 10484 [sym_kWhile]; ACTIONS 10486 [sym_kWith]].

(** State 1223. *)
Definition ts_parse_table_1223 : parse_row :=
  [STATE 1310 [sym_if]; STATE 1317 [sym_ifElse; sym_while; sym_repeat; sym_for; sym_foreach;
   sym_try; sym_case; sym_block; sym_asm; sym_with; sym_raise; sym_statement; sym_goto;
   sym__statement]; STATE 14724 [sym_ifTr; sym_ifElseTr; sym_whileTr; sym_repeatTr; sym_forTr;
   sym_foreachTr; sym_tryTr; sym_caseTr]; STATE 15738 [sym_blockTr]; STATE 14724 [sym_asmTr;
   sym_withTr; sym_raiseTr; sym_statementTr; sym_gotoTr; sym__statementTr];
   STATE 13934 [sym_assignment]; STATE 11905 [sym_varAssignDef]; STATE 13934 [sym_varDef;
   sym_constDef]; STATE 6187 [sym_label]; STATE 8173 [sym__expr; sym_exprConditional];
   STATE 7363 [sym__ref; sym_lambda; sym_inherited; sym_exprDot; sym_exprDeref; sym_exprAs;
   sym_exprTpl; sym_exprSubscript; sym_exprCall]; STATE 8173 [sym_exprBinary; sym_exprUnary];
   STATE 7363 [sym_exprParens; sym_exprBrackets; sym__literal; sym_literalString];
   STATE 6967 [sym__literalString; sym_literalChar]; STATE 7363 [sym_literalNumber];
   STATE 7660 [sym__literalInt; sym__literalFloat];
   STATE 6187 [aux_sym_labeledStatement_repeat1]; STATE 6967 [aux_sym_literalString_repeat1];
   ACTIONS 10730 [anon_sym_SEMI]; ACTIONS 9986 [anon_sym_LBRACK]; ACTIONS 9988 [anon_sym_LPAREN];
   ACTIONS 9990 [aux_sym__literalString_token1]; ACTIONS 9992 [anon_sym_POUND];
   ACTIONS 9994 [aux_sym__literalInt_token1]; ACTIONS 9996 [aux_sym__literalInt_token2;
   aux_sym__literalInt_token3]; ACTIONS 9994 [aux_sym__literalFloat_token1];
   ACTIONS 9998 [sym_kAdd; sym_kSub]; ACTIONS 10000 [sym_kAt]; ACTIONS 10002 [sym_kTrue;
   sym_kFalse]; ACTIONS 10004 [sym_labelNumber]; ACTIONS 3 [sym__space];
   ACTIONS 5 [sym_ppDirective]; ACTIONS 3 [sym_comment]; ACTIONS 10002 [sym_ppFragmentExpr];
   ACTIONS 9990 [sym__literalStringMultiline]; ACTIONS 10006 [sym_identifier];
   ACTIONS 10008 [sym_kSpecialize]; ACTIONS 10336 [sym_kAsm]; ACTIONS 10338 [sym_kBegin];
   ACTIONS 10340 [sym_kCase]; ACTIONS 10016 [sym_kConst]; ACTIONS 4439 [sym_kElse];
   ACTIONS 10344 [sym_kFor]; ACTIONS 10020 [sym_kFunction]; ACTIONS 10346 [sym_kGoto];
   ACTIONS 10544 [sym_kIf]; ACTIONS 10026 [sym_kInherited]; ACTIONS 10002 [sym_kNil];
   ACTIONS 10000 [sym_kNot]; ACTIONS 10020 [sym_kProcedure]; ACTIONS 10350 [sym_kRaise];
   ACTIONS 10352 [sym_kRepeat]; ACTIONS 10032 [sym_kString]; ACTIONS 10354 [sym_kTry];
   ACTIONS 10036 [sym_kVar]; ACTIONS 10356 [sym_kWhile]; ACTIONS 10358 [sym_kWith]].

(** State 1224. *)
Definition ts_parse_table_1224 : parse_row :=
  [ACTIONS 9822 [anon_sym_SEMI; anon_sym_COMMA; anon_sym_LBRACK]; ACTIONS 9824 [anon_sym_LPAREN];
   ACTIONS 9822 [aux_sym__literalString_token1; anon_sym_POUND];
   ACTIONS 9824 [aux_sym__literalInt_token1]; ACTIONS 9822 [aux_sym__literalInt_token2;
   aux_sym__literalInt_token3]; ACTIONS 9824 [aux_sym__literalFloat_token1];
   ACTIONS 9822 [aux_sym_ppUsesBlock_token1; aux_sym_ppUsesBlock_token2;
   aux_sym_ppUsesBlock_token3]; ACTIONS 9824 [sym_kAdd; sym_kSub]; ACTIONS 9822 [sym_kAt;
   sym_kTrue; sym_kFalse]; ACTIONS 3 [sym__space]; ACTIONS 5 [sym_ppDirective];
   ACTIONS 3 [sym_comment]; ACTIONS 9822 [sym_ppFragmentExpr; sym__literalStringMultiline;
   sym_identifier; sym_kDefault; sym_kNodefault; sym_kDispId; sym_kGeneric; sym_kSpecialize;
   sym_kOperator; sym_kPublic; sym_kStatic; sym_kVirtual; sym_kAbstract; sym_kDynamic;
   sym_kOverride; sym_kOverload; sym_kReintroduce; sym_kStdcall; sym_kCdecl; sym_kCppdecl;
   sym_kPascal; sym_kRegister; sym_kMwpascal; sym_kMessage; sym_kDeprecated; sym_kExperimental;
   sym_kPlatform; sym_kUnimplemented; sym_kCvar; sym_kExport; sym_kFar; sym_kNear; sym_kSafecall;
   sym_kAssembler; sym_kNostackframe; sym_kInterrupt; sym_kNoreturn; sym_kIocheck; sym_kLocal;
   sym_kHardfloat; sym_kSoftfloat; sym_kMs_abi_default; sym_kMs_abi_cdecl; sym_kSaveregisters;
   sym_kSysv_abi_default; sym_kSysv_abi_cdecl; sym_kVectorcall; sym_kVarargs; sym_kWinapi;
   sym_kAlias; sym_kAsm; sym_kBegin; sym_kCase; sym_kClass; sym_kConst; sym_kConstructor;
   sym_kDestructor; sym_kExports; sym_kFor; sym_kFunction; sym_kGoto; sym_kIf; sym_kInherited;
   sym_kInline; sym_kLabel; sym_kNil; sym_kNot; sym_kProcedure; sym_kProperty; sym_kRaise;
   sym_kRepeat; sym_kResourcestring; sym_kString; sym_kThreadvar; sym_kTry; sym_kType; sym_kUses;
   sym_kVar; sym_kWhile; sym_kWith]].

(** State 1225. *)
Definition ts_parse_table_1225 : parse_row :=
  [ACTIONS 9834 [anon_sym_SEMI; anon_sym_COMMA; anon_sym_LBRACK]; ACTIONS 9836 [anon_sym_LPAREN];
   ACTIONS 9834 [aux_sym__literalString_token1; anon_sym_POUND];
   ACTIONS 9836 [aux_sym__literalInt_token1]; ACTIONS 9834 [aux_sym__literalInt_token2;
   aux_sym__literalInt_token3]; ACTIONS 9836 [aux_sym__literalFloat_token1];
   ACTIONS 9834 [aux_sym_ppUsesBlock_token1; aux_sym_ppUsesBlock_token2;
   aux_sym_ppUsesBlock_token3]; ACTIONS 9836 [sym_kAdd; sym_kSub]; ACTIONS 9834 [sym_kAt;
   sym_kTrue; sym_kFalse]; ACTIONS 3 [sym__space]; ACTIONS 5 [sym_ppDirective];
   ACTIONS 3 [sym_comment]; ACTIONS 9834 [sym_ppFragmentExpr; sym__literalStringMultiline;
   sym_identifier; sym_kDefault; sym_kNodefault; sym_kDispId; sym_kGeneric; sym_kSpecialize;
   sym_kOperator; sym_kPublic; sym_kStatic; sym_kVirtual; sym_kAbstract; sym_kDynamic;
   sym_kOverride; sym_kOverload; sym_kReintroduce; sym_kStdcall; sym_kCdecl; sym_kCppdecl;
   sym_kPascal; sym_kRegister; sym_kMwpascal; sym_kMessage; sym_kDeprecated; sym_kExperimental;
   sym_kPlatform; sym_kUnimplemented; sym_kCvar; sym_kExport; sym_kFar; sym_kNear; sym_kSafecall;
   sym_kAssembler; sym_kNostackframe; sym_kInterrupt; sym_kNoreturn; sym_kIocheck; sym_kLocal;
   sym_kHardfloat; sym_kSoftfloat; sym_kMs_abi_default; sym_kMs_abi_cdecl; sym_kSaveregisters;
   sym_kSysv_abi_default; sym_kSysv_abi_cdecl; sym_kVectorcall; sym_kVarargs; sym_kWinapi;
   sym_kAlias; sym_kAsm; sym_kBegin; sym_kCase; sym_kClass; sym_kConst; sym_kConstructor;
   sym_kDestructor; sym_kExports; sym_kFor; sym_kFunction; sym_kGoto; sym_kIf; sym_kInherited;
   sym_kInline; sym_kLabel; sym_kNil; sym_kNot; sym_kProcedure; sym_kProperty; sym_kRaise;
   sym_kRepeat; sym_kResourcestring; sym_kString; sym_kThreadvar; sym_kTry; sym_kType; sym_kUses;
   sym_kVar; sym_kWhile; sym_kWith]].

(** State 1226. *)
Definition ts_parse_table_1226 : parse_row :=
  [ACTIONS 9838 [anon_sym_SEMI; anon_sym_COMMA; anon_sym_LBRACK]; ACTIONS 9840 [anon_sym_LPAREN];
   ACTIONS 9838 [aux_sym__literalString_token1; anon_sym_POUND];
   ACTIONS 9840 [aux_sym__literalInt_token1]; ACTIONS 9838 [aux_sym__literalInt_token2;
   aux_sym__literalInt_token3]; ACTIONS 9840 [aux_sym__literalFloat_token1];
   ACTIONS 9838 [aux_sym_ppUsesBlock_token1; aux_sym_ppUsesBlock_token2;
   aux_sym_ppUsesBlock_token3]; ACTIONS 9840 [sym_kAdd; sym_kSub]; ACTIONS 9838 [sym_kAt;
   sym_kTrue; sym_kFalse]; ACTIONS 3 [sym__space]; ACTIONS 5 [sym_ppDirective];
   ACTIONS 3 [sym_comment]; ACTIONS 9838 [sym_ppFragmentExpr; sym__literalStringMultiline;
   sym_identifier; sym_kDefault; sym_kNodefault; sym_kDispId; sym_kGeneric; sym_kSpecialize;
   sym_kOperator; sym_kPublic; sym_kStatic; sym_kVirtual; sym_kAbstract; sym_kDynamic;
   sym_kOverride; sym_kOverload; sym_kReintroduce; sym_kStdcall; sym_kCdecl; sym_kCppdecl;
   sym_kPascal; sym_kRegister; sym_kMwpascal; sym_kMessage; sym_kDeprecated; sym_kExperimental;
   sym_kPlatform; sym_kUnimplemented; sym_kCvar; sym_kExport; sym_kFar; sym_kNear; sym_kSafecall;
   sym_kAssembler; sym_kNostackframe; sym_kInterrupt; sym_kNoreturn; sym_kIocheck; sym_kLocal;
   sym_kHardfloat; sym_kSoftfloat; sym_kMs_abi_default; sym_kMs_abi_cdecl; sym_kSaveregisters;
   sym_kSysv_abi_default; sym_kSysv_abi_cdecl; sym_kVectorcall; sym_kVarargs; sym_kWinapi;
   sym_kAlias; sym_kAsm; sym_kBegin; sym_kCase; sym_kClass; sym_kConst; sym_kConstructor;
   sym_kDestructor; sym_kExports; sym_kFor; sym_kFunction; sym_kGoto; sym_kIf; sym_kInherited;
   sym_kInline; sym_kLabel; sym_kNil; sym_kNot; sym_kProcedure; sym_kProperty; sym_kRaise;
   sym_kRepeat; sym_kResourcestring; sym_kString; sym_kThreadvar; sym_kTry; sym_kType; sym_kUses;
   sym_kVar; sym_kWhile; sym_kWith]].

(** State 1227. *)
Definition ts_parse_table_1227 : parse_row :=
  [ACTIONS 10732 [anon_sym_SEMI; anon_sym_COMMA; anon_sym_LBRACK];
   ACTIONS 10734 [anon_sym_LPAREN]; ACTIONS 10732 [aux_sym__literalString_token1;
   anon_sym_POUND]; ACTIONS 10734 [aux_sym__literalInt_token1];
   ACTIONS 10732 [aux_sym__literalInt_token2; aux_sym__literalInt_token3];
   ACTIONS 10734 [aux_sym__literalFloat_token1]; ACTIONS 10732 [aux_sym_ppUsesBlock_token1;
   aux_sym_ppUsesBlock_token2; aux_sym_ppUsesBlock_token3]; ACTIONS 10734 [sym_kAdd; sym_kSub];
   ACTIONS 10732 [sym_kAt; sym_kTrue; sym_kFalse]; ACTIONS 3 [sym__space];
   ACTIONS 5 [sym_ppDirective]; ACTIONS 3 [sym_comment]; ACTIONS 10732 [sym_ppFragmentExpr;
   sym__literalStringMultiline; sym_identifier; sym_kDefault; sym_kNodefault; sym_kDispId;
   sym_kGeneric; sym_kSpecialize; sym_kOperator; sym_kPublic; sym_kStatic; sym_kVirtual;
   sym_kAbstract; sym_kDynamic; sym_kOverride; sym_kOverload; sym_kReintroduce; sym_kStdcall;
   sym_kCdecl; sym_kCppdecl; sym_kPascal; sym_kRegister; sym_kMwpascal; sym_kMessage;
   sym_kDeprecated; sym_kExperimental; sym_kPlatform; sym_kUnimplemented; sym_kCvar; sym_kExport;
   sym_kFar; sym_kNear; sym_kSafecall; sym_kAssembler; sym_kNostackframe; sym_kInterrupt;
   sym_kNoreturn; sym_kIocheck; sym_kLocal; sym_kHardfloat; sym_kSoftfloat; sym_kMs_abi_default;
   sym_kMs_abi_cdecl; sym_kSaveregisters; sym_kSysv_abi_default; sym_kSysv_abi_cdecl;
   sym_kVectorcall; sym_kVarargs; sym_kWinapi; sym_kAlias; sym_kAsm; sym_kBegin; sym_kCase;
   sym_kClass; sym_kConst; sym_kConstructor; sym_kDestructor; sym_kElse; sym_kExports; sym_kFor;
   sym_kFunction; sym_kGoto; sym_kIf; sym_kInherited; sym_kLabel; sym_kNil; sym_kNot;
   sym_kProcedure; sym_kProperty; sym_kRaise; sym_kRepeat; sym_kResourcestring; sym_kString;
   sym_kThreadvar; sym_kTry; sym_kType; sym_kUses; sym_kVar; sym_kWhile; sym_kWith]].

(** State 1228. *)
Definition ts_parse_table_1228 : parse_row :=
  [STATE 13920 [sym_if]; STATE 14089 [sym_ifElse; sym_while; sym_repeat; sym_for; sym_foreach;
   sym_try; sym_case; sym_block; sym_asm; sym_with; sym_raise; sym_statement; sym_goto;
   sym__statement]; STATE 15037 [sym_ifTr; sym_ifElseTr; sym_whileTr; sym_repeatTr; sym_forTr;
   sym_foreachTr; sym_tryTr; sym_caseTr]; STATE 15738 [sym_blockTr]; STATE 15037 [sym_asmTr;
   sym_withTr; sym_raiseTr; sym_statementTr; sym_gotoTr; sym__statementTr];
   STATE 13502 [sym_assignment]; STATE 11905 [sym_varAssignDef]; STATE 13502 [sym_varDef;
   sym_constDef]; STATE 1238 [sym_label]; STATE 7994 [sym__expr; sym_exprConditional];
   STATE 7363 [sym__ref; sym_lambda; sym_inherited; sym_exprDot; sym_exprDeref; sym_exprAs;
   sym_exprTpl; sym_exprSubscript; sym_exprCall]; STATE 7994 [sym_exprBinary; sym_exprUnary];
   STATE 7363 [sym_exprParens; sym_exprBrackets; sym__literal; sym_literalString];
   STATE 6967 [sym__literalString; sym_literalChar]; STATE 7363 [sym_literalNumber];
   STATE 7660 [sym__literalInt; sym__literalFloat];
   STATE 1238 [aux_sym_labeledStatement_repeat1]; STATE 6967 [aux_sym_literalString_repeat1];
   ACTIONS 10736 [anon_sym_SEMI]; ACTIONS 9986 [anon_sym_LBRACK]; ACTIONS 9988 [anon_sym_LPAREN];
   ACTIONS 9990 [aux_sym__literalString_token1]; ACTIONS 9992 [anon_sym_POUND];
   ACTIONS 9994 [aux_sym__literalInt_token1]; ACTIONS 9996 [aux_sym__literalInt_token2;
   aux_sym__literalInt_token3]; ACTIONS 9994 [aux_sym__literalFloat_token1];
   ACTIONS 9998 [sym_kAdd; sym_kSub]; ACTIONS 10000 [sym_kAt]; ACTIONS 10002 [sym_kTrue;
   sym_kFalse]; ACTIONS 10004 [sym_labelNumber]; ACTIONS 3 [sym__space];
   ACTIONS 5 [sym_ppDirective]; ACTIONS 3 [sym_comment]; ACTIONS 10002 [sym_ppFragmentExpr];
   ACTIONS 9990 [sym__literalStringMultiline]; ACTIONS 10006 [sym_identifier];
   ACTIONS 10008 [sym_kSpecialize]; ACTIONS 10162 [sym_kAsm]; ACTIONS 10164 [sym_kBegin];
   ACTIONS 10166 [sym_kCase]; ACTIONS 10016 [sym_kConst]; ACTIONS 4301 [sym_kElse];
   ACTIONS 10170 [sym_kFor]; ACTIONS 10020 [sym_kFunction]; ACTIONS 10172 [sym_kGoto];
   ACTIONS 10174 [sym_kIf]; ACTIONS 10026 [sym_kInherited]; ACTIONS 10002 [sym_kNil];
   ACTIONS 10000 [sym_kNot]; ACTIONS 10020 [sym_kProcedure]; ACTIONS 10176 [sym_kRaise];
   ACTIONS 10178 [sym_kRepeat]; ACTIONS 10032 [sym_kString]; ACTIONS 10180 [sym_kTry];
   ACTIONS 10036 [sym_kVar]; ACTIONS 10182 [sym_kWhile]; ACTIONS 10184 [sym_kWith]].

(** State 1229. *)
Definition ts_parse_table_1229 : parse_row :=
  [ACTIONS 10732 [anon_sym_SEMI; anon_sym_COMMA; anon_sym_LBRACK];
   ACTIONS 10734 [anon_sym_LPAREN]; ACTIONS 10732 [aux_sym__literalString_token1;
   anon_sym_POUND]; ACTIONS 10734 [aux_sym__literalInt_token1];
   ACTIONS 10732 [aux_sym__literalInt_token2; aux_sym__literalInt_token3];
   ACTIONS 10734 [aux_sym__literalFloat_token1]; ACTIONS 10732 [aux_sym_ppUsesBlock_token1;
   aux_sym_ppUsesBlock_token2; aux_sym_ppUsesBlock_token3]; ACTIONS 10734 [sym_kAdd; sym_kSub];
   ACTIONS 10732 [sym_kAt; sym_kTrue; sym_kFalse]; ACTIONS 3 [sym__space];
   ACTIONS 5 [sym_ppDirective]; ACTIONS 3 [sym_comment]; ACTIONS 10732 [sym_ppFragmentExpr;
   sym__literalStringMultiline; sym_identifier; sym_kDefault; sym_kNodefault; sym_kDispId;
   sym_kGeneric; sym_kSpecialize; sym_kOperator; sym_kPublic; sym_kStatic; sym_kVirtual;
   sym_kAbstract; sym_kDynamic; sym_kOverride; sym_kOverload; sym_kReintroduce; sym_kStdcall;
   sym_kCdecl; sym_kCppdecl; sym_kPascal; sym_kRegister; sym_kMwpascal; sym_kMessage;
   sym_kDeprecated; sym_kExperimental; sym_kPlatform; sym_kUnimplemented; sym_kCvar; sym_kExport;
   sym_kFar; sym_kNear; sym_kSafecall; sym_kAssembler; sym_kNostackframe; sym_kInterrupt;
   sym_kNoreturn; sym_kIocheck; sym_kLocal; sym_kHardfloat; sym_kSoftfloat; sym_kMs_abi_default;
   sym_kMs_abi_cdecl; sym_kSaveregisters; sym_kSysv_abi_default; sym_kSysv_abi_cdecl;
   sym_kVectorcall; sym_kVarargs; sym_kWinapi; sym_kAlias; sym_kAsm; sym_kBegin; sym_kCase;
   sym_kClass; sym_kConst; sym_kConstructor; sym_kDestructor; sym_kElse; sym_kExports; sym_kFor;
   sym_kFunction; sym_kGoto; sym_kIf; sym_kInherited; sym_kLabel; sym_kNil; sym_kNot;
   sym_kProcedure; sym_kProperty; sym_kRaise; sym_kRepeat; sym_kResourcestring; sym_kString;
   sym_kThreadvar; sym_kTry; sym_kType; sym_kUses; sym_kVar; sym_kWhile; sym_kWith]].

(** State 1230. *)
Definition ts_parse_table_1230 : parse_row :=
  [STATE 6747 [sym_if]; STATE 6702 [sym_ifElse; sym_while; sym_repeat; sym_for; sym_foreach;
   sym_try; sym_case; sym_block; sym_asm; sym_with; sym_raise; sym_statement; sym_goto;
   sym__statement]; STATE 15037 [sym_ifTr; sym_ifElseTr; sym_whileTr; sym_repeatTr; sym_forTr;
   sym_foreachTr; sym_tryTr; sym_caseTr]; STATE 15738 [sym_blockTr]; STATE 15037 [sym_asmTr;
   sym_withTr; sym_raiseTr; sym_statementTr; sym_gotoTr; sym__statementTr];
   STATE 13971 [sym_assignment]; STATE 11905 [sym_varAssignDef]; STATE 13971 [sym_varDef;
   sym_constDef]; STATE 1241 [sym_label]; STATE 8140 [sym__expr; sym_exprConditional];
   STATE 7363 [sym__ref; sym_lambda; sym_inherited; sym_exprDot; sym_exprDeref; sym_exprAs;
   sym_exprTpl; sym_exprSubscript; sym_exprCall]; STATE 8140 [sym_exprBinary; sym_exprUnary];
   STATE 7363 [sym_exprParens; sym_exprBrackets; sym__literal; sym_literalString];
   STATE 6967 [sym__literalString; sym_literalChar]; STATE 7363 [sym_literalNumber];
   STATE 7660 [sym__literalInt; sym__literalFloat];
   STATE 1241 [aux_sym_labeledStatement_repeat1]; STATE 6967 [aux_sym_literalString_repeat1];
   ACTIONS 10738 [anon_sym_SEMI]; ACTIONS 9986 [anon_sym_LBRACK]; ACTIONS 9988 [anon_sym_LPAREN];
   ACTIONS 9990 [aux_sym__literalString_token1]; ACTIONS 9992 [anon_sym_POUND];
   ACTIONS 9994 [aux_sym__literalInt_token1]; ACTIONS 9996 [aux_sym__literalInt_token2;
   aux_sym__literalInt_token3]; ACTIONS 9994 [aux_sym__literalFloat_token1];
   ACTIONS 9998 [sym_kAdd; sym_kSub]; ACTIONS 10000 [sym_kAt]; ACTIONS 10002 [sym_kTrue;
   sym_kFalse]; ACTIONS 10004 [sym_labelNumber]; ACTIONS 3 [sym__space];
   ACTIONS 5 [sym_ppDirective]; ACTIONS 3 [sym_comment]; ACTIONS 10002 [sym_ppFragmentExpr];
   ACTIONS 9990 [sym__literalStringMultiline]; ACTIONS 10006 [sym_identifier];
   ACTIONS 10008 [sym_kSpecialize]; ACTIONS 10044 [sym_kAsm]; ACTIONS 10046 [sym_kBegin];
   ACTIONS 10048 [sym_kCase]; ACTIONS 10016 [sym_kConst]; ACTIONS 4301 [sym_kElse];
   ACTIONS 10050 [sym_kFor]; ACTIONS 10020 [sym_kFunction]; ACTIONS 10052 [sym_kGoto];
   ACTIONS 10054 [sym_kIf]; ACTIONS 10026 [sym_kInherited]; ACTIONS 10002 [sym_kNil];
   ACTIONS 10000 [sym_kNot]; ACTIONS 10020 [sym_kProcedure]; ACTIONS 10056 [sym_kRaise];
   ACTIONS 10058 [sym_kRepeat]; ACTIONS 10032 [sym_kString]; ACTIONS 10060 [sym_kTry];
   ACTIONS 10036 [sym_kVar]; ACTIONS 10062 [sym_kWhile]; ACTIONS 10064 [sym_kWith]].

(** State 1231. *)
Definition ts_parse_table_1231 : parse_row :=
  [ACTIONS 9842 [anon_sym_SEMI; anon_sym_COMMA; anon_sym_LBRACK]; ACTIONS 9844 [anon_sym_LPAREN];
   ACTIONS 9842 [aux_sym__literalString_token1; anon_sym_POUND];
   ACTIONS 9844 [aux_sym__literalInt_token1]; ACTIONS 9842 [aux_sym__literalInt_token2;
   aux_sym__literalInt_token3]; ACTIONS 9844 [aux_sym__literalFloat_token1];
   ACTIONS 9842 [aux_sym_ppUsesBlock_token1; aux_sym_ppUsesBlock_token2;
   aux_sym_ppUsesBlock_token3]; ACTIONS 9844 [sym_kAdd; sym_kSub]; ACTIONS 9842 [sym_kAt;
   sym_kTrue; sym_kFalse]; ACTIONS 3 [sym__space]; ACTIONS 5 [sym_ppDirective];
   ACTIONS 3 [sym_comment]; ACTIONS 9842 [sym_ppFragmentExpr; sym__literalStringMultiline;
   sym_identifier; sym_kDefault; sym_kNodefault; sym_kDispId; sym_kGeneric; sym_kSpecialize;
   sym_kOperator; sym_kPublic; sym_kStatic; sym_kVirtual; sym_kAbstract; sym_kDynamic;
   sym_kOverride; sym_kOverload; sym_kReintroduce; sym_kStdcall; sym_kCdecl; sym_kCppdecl;
   sym_kPascal; sym_kRegister; sym_kMwpascal; sym_kMessage; sym_kDeprecated; sym_kExperimental;
   sym_kPlatform; sym_kUnimplemented; sym_kCvar; sym_kExport; sym_kFar; sym_kNear; sym_kSafecall;
   sym_kAssembler; sym_kNostackframe; sym_kInterrupt; sym_kNoreturn; sym_kIocheck; sym_kLocal;
   sym_kHardfloat; sym_kSoftfloat; sym_kMs_abi_default; sym_kMs_abi_cdecl; sym_kSaveregisters;
   sym_kSysv_abi_default; sym_kSysv_abi_cdecl; sym_kVectorcall; sym_kVarargs; sym_kWinapi;
   sym_kAlias; sym_kAsm; sym_kBegin; sym_kCase; sym_kClass; sym_kConst; sym_kConstructor;
   sym_kDestructor; sym_kExports; sym_kFor; sym_kFunction; sym_kGoto; sym_kIf; sym_kInherited;
   sym_kInline; sym_kLabel; sym_kNil; sym_kNot; sym_kProcedure; sym_kProperty; sym_kRaise;
   sym_kRepeat; sym_kResourcestring; sym_kString; sym_kThreadvar; sym_kTry; sym_kType; sym_kUses;
   sym_kVar; sym_kWhile; sym_kWith]].

(** State 1232. *)
Definition ts_parse_table_1232 : parse_row :=
  [ACTIONS 10740 [anon_sym_SEMI; anon_sym_COMMA; anon_sym_LBRACK];
   ACTIONS 10742 [anon_sym_LPAREN]; ACTIONS 10740 [aux_sym__literalString_token1;
   anon_sym_POUND]; ACTIONS 10742 [aux_sym__literalInt_token1];
   ACTIONS 10740 [aux_sym__literalInt_token2; aux_sym__literalInt_token3];
   ACTIONS 10742 [aux_sym__literalFloat_token1]; ACTIONS 10740 [aux_sym_ppUsesBlock_token1;
   aux_sym_ppUsesBlock_token2; aux_sym_ppUsesBlock_token3]; ACTIONS 10742 [sym_kAdd; sym_kSub];
   ACTIONS 10740 [sym_kAt; sym_kTrue; sym_kFalse]; ACTIONS 3 [sym__space];
   ACTIONS 5 [sym_ppDirective]; ACTIONS 3 [sym_comment]; ACTIONS 10740 [sym_ppFragmentExpr;
   sym__literalStringMultiline; sym_identifier; sym_kDefault; sym_kNodefault; sym_kDispId;
   sym_kGeneric; sym_kSpecialize; sym_kOperator; sym_kPublic; sym_kStatic; sym_kVirtual;
   sym_kAbstract; sym_kDynamic; sym_kOverride; sym_kOverload; sym_kReintroduce; sym_kStdcall;
   sym_kCdecl; sym_kCppdecl; sym_kPascal; sym_kRegister; sym_kMwpascal; sym_kMessage;
   sym_kDeprecated; sym_kExperimental; sym_kPlatform; sym_kUnimplemented; sym_kCvar; sym_kExport;
   sym_kFar; sym_kNear; sym_kSafecall; sym_kAssembler; sym_kNostackframe; sym_kInterrupt;
   sym_kNoreturn; sym_kIocheck; sym_kLocal; sym_kHardfloat; sym_kSoftfloat; sym_kMs_abi_default;
   sym_kMs_abi_cdecl; sym_kSaveregisters; sym_kSysv_abi_default; sym_kSysv_abi_cdecl;
   sym_kVectorcall; sym_kVarargs; sym_kWinapi; sym_kAlias; sym_kAsm; sym_kBegin; sym_kCase;
   sym_kClass; sym_kConst; sym_kConstructor; sym_kDestructor; sym_kElse; sym_kExports; sym_kFor;
   sym_kFunction; sym_kGoto; sym_kIf; sym_kInherited; sym_kLabel; sym_kNil; sym_kNot;
   sym_kProcedure; sym_kProperty; sym_kRaise; sym_kRepeat; sym_kResourcestring; sym_kString;
   sym_kThreadvar; sym_kTry; sym_kType; sym_kUses; sym_kVar; sym_kWhile; sym_kWith]].

(** State 1233. *)
Definition ts_parse_table_1233 : parse_row :=
  [STATE 15084 [sym_if]; STATE 15522 [sym_ifElse; sym_while; sym_repeat; sym_for; sym_foreach;
   sym_try; sym_case; sym_block; sym_asm; sym_with; sym_raise; sym_statement; sym_goto;
   sym__statement]; STATE 15037 [sym_ifTr; sym_ifElseTr; sym_whileTr; sym_repeatTr; sym_forTr;
   sym_foreachTr; sym_tryTr; sym_caseTr]; STATE 15738 [sym_blockTr]; STATE 15037 [sym_asmTr;
   sym_withTr; sym_raiseTr; sym_statementTr; sym_gotoTr; sym__statementTr];
   STATE 13505 [sym_assignment]; STATE 11905 [sym_varAssignDef]; STATE 13505 [sym_varDef;
   sym_constDef]; STATE 1306 [sym_label]; STATE 8112 [sym__expr; sym_exprConditional];
   STATE 7363 [sym__ref; sym_lambda; sym_inherited; sym_exprDot; sym_exprDeref; sym_exprAs;
   sym_exprTpl; sym_exprSubscript; sym_exprCall]; STATE 8112 [sym_exprBinary; sym_exprUnary];
   STATE 7363 [sym_exprParens; sym_exprBrackets; sym__literal; sym_literalString];
   STATE 6967 [sym__literalString; sym_literalChar]; STATE 7363 [sym_literalNumber];
   STATE 7660 [sym__literalInt; sym__literalFloat];
   STATE 1306 [aux_sym_labeledStatement_repeat1]; STATE 6967 [aux_sym_literalString_repeat1];
   ACTIONS 10744 [anon_sym_SEMI]; ACTIONS 9986 [anon_sym_LBRACK]; ACTIONS 9988 [anon_sym_LPAREN];
   ACTIONS 9990 [aux_sym__literalString_token1]; ACTIONS 9992 [anon_sym_POUND];
   ACTIONS 9994 [aux_sym__literalInt_token1]; ACTIONS 9996 [aux_sym__literalInt_token2;
   aux_sym__literalInt_token3]; ACTIONS 9994 [aux_sym__literalFloat_token1];
   ACTIONS 9998 [sym_kAdd; sym_kSub]; ACTIONS 10000 [sym_kAt]; ACTIONS 10002 [sym_kTrue;
   sym_kFalse]; ACTIONS 10004 [sym_labelNumber]; ACTIONS 3 [sym__space];
   ACTIONS 5 [sym_ppDirective]; ACTIONS 3 [sym_comment]; ACTIONS 10002 [sym_ppFragmentExpr];
   ACTIONS 9990 [sym__literalStringMultiline]; ACTIONS 10006 [sym_identifier];
   ACTIONS 10008 [sym_kSpecialize]; ACTIONS 10276 [sym_kAsm]; ACTIONS 10278 [sym_kBegin];
   ACTIONS 10280 [sym_kCase]; ACTIONS 10016 [sym_kConst]; ACTIONS 4301 [sym_kElse];
   ACTIONS 10282 [sym_kFor]; ACTIONS 10020 [sym_kFunction]; ACTIONS 10284 [sym_kGoto];
   ACTIONS 10572 [sym_kIf]; ACTIONS 10026 [sym_kInherited]; ACTIONS 10002 [sym_kNil];
   ACTIONS 10000 [sym_kNot]; ACTIONS 10020 [sym_kProcedure]; ACTIONS 10288 [sym_kRaise];
   ACTIONS 10290 [sym_kRepeat]; ACTIONS 10032 [sym_kString]; ACTIONS 10292 [sym_kTry];
   ACTIONS 10036 [sym_kVar]; ACTIONS 10294 [sym_kWhile]; ACTIONS 10296 [sym_kWith]].

(** State 1234. *)
Definition ts_parse_table_1234 : parse_row :=
  [ACTIONS 10630 [anon_sym_SEMI; anon_sym_COMMA; anon_sym_LBRACK];
   ACTIONS 10632 [anon_sym_LPAREN]; ACTIONS 10630 [aux_sym__literalString_token1;
   anon_sym_POUND]; ACTIONS 10632 [aux_sym__literalInt_token1];
   ACTIONS 10630 [aux_sym__literalInt_token2; aux_sym__literalInt_token3];
   ACTIONS 10632 [aux_sym__literalFloat_token1]; ACTIONS 10630 [aux_sym_ppUsesBlock_token1;
   aux_sym_ppUsesBlock_token2; aux_sym_ppUsesBlock_token3]; ACTIONS 10632 [sym_kAdd; sym_kSub];
   ACTIONS 10630 [sym_kAt; sym_kTrue; sym_kFalse]; ACTIONS 3 [sym__space];
   ACTIONS 5 [sym_ppDirective]; ACTIONS 3 [sym_comment]; ACTIONS 10630 [sym_ppFragmentExpr;
   sym__literalStringMultiline; sym_identifier; sym_kDefault; sym_kNodefault; sym_kDispId;
   sym_kGeneric; sym_kSpecialize; sym_kOperator; sym_kPublic; sym_kStatic; sym_kVirtual;
   sym_kAbstract; sym_kDynamic; sym_kOverride; sym_kOverload; sym_kReintroduce; sym_kStdcall;
   sym_kCdecl; sym_kCppdecl; sym_kPascal; sym_kRegister; sym_kMwpascal; sym_kMessage;
   sym_kDeprecated; sym_kExperimental; sym_kPlatform; sym_kUnimplemented; sym_kCvar; sym_kExport;
   sym_kFar; sym_kNear; sym_kSafecall; sym_kAssembler; sym_kNostackframe; sym_kInterrupt;
   sym_kNoreturn; sym_kIocheck; sym_kLocal; sym_kHardfloat; sym_kSoftfloat; sym_kMs_abi_default;
   sym_kMs_abi_cdecl; sym_kSaveregisters; sym_kSysv_abi_default; sym_kSysv_abi_cdecl;
   sym_kVectorcall; sym_kVarargs; sym_kWinapi; sym_kAlias; sym_kAsm; sym_kBegin; sym_kCase;
   sym_kClass; sym_kConst; sym_kConstructor; sym_kDestructor; sym_kExports; sym_kFor;
   sym_kFunction; sym_kGoto; sym_kIf; sym_kInherited; sym_kInline; sym_kLabel; sym_kNil;
   sym_kNot; sym_kProcedure; sym_kProperty; sym_kRaise; sym_kRepeat; sym_kResourcestring;
   sym_kString; sym_kThreadvar; sym_kTry; sym_kType; sym_kUses; sym_kVar; sym_kWhile; sym_kWith]].

(** State 1235. *)
Definition ts_parse_table_1235 : parse_row :=
  [ACTIONS 10576 [anon_sym_SEMI; anon_sym_COMMA; anon_sym_LBRACK];
   ACTIONS 10578 [anon_sym_LPAREN]; ACTIONS 10576 [aux_sym__literalString_token1;
   anon_sym_POUND]; ACTIONS 10578 [aux_sym__literalInt_token1];
   ACTIONS 10576 [aux_sym__literalInt_token2; aux_sym__literalInt_token3];
   ACTIONS 10578 [aux_sym__literalFloat_token1]; ACTIONS 10576 [aux_sym_ppUsesBlock_token1;
   aux_sym_ppUsesBlock_token2; aux_sym_ppUsesBlock_token3]; ACTIONS 10578 [sym_kAdd; sym_kSub];
   ACTIONS 10576 [sym_kAt; sym_kTrue; sym_kFalse]; ACTIONS 3 [sym__space];
   ACTIONS 5 [sym_ppDirective]; ACTIONS 3 [sym_comment]; ACTIONS 10576 [sym_ppFragmentExpr;
   sym__literalStringMultiline; sym_identifier; sym_kDefault; sym_kNodefault; sym_kDispId;
   sym_kGeneric; sym_kSpecialize; sym_kOperator; sym_kPublic; sym_kStatic; sym_kVirtual;
   sym_kAbstract; sym_kDynamic; sym_kOverride; sym_kOverload; sym_kReintroduce; sym_kStdcall;
   sym_kCdecl; sym_kCppdecl; sym_kPascal; sym_kRegister; sym_kMwpascal; sym_kMessage;
   sym_kDeprecated; sym_kExperimental; sym_kPlatform; sym_kUnimplemented; sym_kCvar; sym_kExport;
   sym_kFar; sym_kNear; sym_kSafecall; sym_kAssembler; sym_kNostackframe; sym_kInterrupt;
   sym_kNoreturn; sym_kIocheck; sym_kLocal; sym_kHardfloat; sym_kSoftfloat; sym_kMs_abi_default;
   sym_kMs_abi_cdecl; sym_kSaveregisters; sym_kSysv_abi_default; sym_kSysv_abi_cdecl;
   sym_kVectorcall; sym_kVarargs; sym_kWinapi; sym_kAlias; sym_kAsm; sym_kBegin; sym_kCase;
   sym_kClass; sym_kConst; sym_kConstructor; sym_kDestructor; sym_kExports; sym_kFor;
   sym_kFunction; sym_kGoto; sym_kIf; sym_kInherited; sym_kInline; sym_kLabel; sym_kNil;
   sym_kNot; sym_kProcedure; sym_kProperty; sym_kRaise; sym_kRepeat; sym_kResourcestring;
   sym_kString; sym_kThreadvar; sym_kTry; sym_kType; sym_kUses; sym_kVar; sym_kWhile; sym_kWith]].

(** State 1236. *)
Definition ts_parse_table_1236 : parse_row :=
  [ACTIONS 9850 [anon_sym_SEMI; anon_sym_COMMA; anon_sym_LBRACK]; ACTIONS 9852 [anon_sym_LPAREN];
   ACTIONS 9850 [aux_sym__literalString_token1; anon_sym_POUND];
   ACTIONS 9852 [aux_sym__literalInt_token1]; ACTIONS 9850 [aux_sym__literalInt_token2;
   aux_sym__literalInt_token3]; ACTIONS 9852 [aux_sym__literalFloat_token1];
   ACTIONS 9850 [aux_sym_ppUsesBlock_token1; aux_sym_ppUsesBlock_token2;
   aux_sym_ppUsesBlock_token3]; ACTIONS 9852 [sym_kAdd; sym_kSub]; ACTIONS 9850 [sym_kAt;
   sym_kTrue; sym_kFalse]; ACTIONS 3 [sym__space]; ACTIONS 5 [sym_ppDirective];
   ACTIONS 3 [sym_comment]; ACTIONS 9850 [sym_ppFragmentExpr; sym__literalStringMultiline;
   sym_identifier; sym_kDefault; sym_kNodefault; sym_kDispId; sym_kGeneric; sym_kSpecialize;
   sym_kOperator; sym_kPublic; sym_kStatic; sym_kVirtual; sym_kAbstract; sym_kDynamic;
   sym_kOverride; sym_kOverload; sym_kReintroduce; sym_kStdcall; sym_kCdecl; sym_kCppdecl;
   sym_kPascal; sym_kRegister; sym_kMwpascal; sym_kMessage; sym_kDeprecated; sym_kExperimental;
   sym_kPlatform; sym_kUnimplemented; sym_kCvar; sym_kExport; sym_kFar; sym_kNear; sym_kSafecall;
   sym_kAssembler; sym_kNostackframe; sym_kInterrupt; sym_kNoreturn; sym_kIocheck; sym_kLocal;
   sym_kHardfloat; sym_kSoftfloat; sym_kMs_abi_default; sym_kMs_abi_cdecl; sym_kSaveregisters;
   sym_kSysv_abi_default; sym_kSysv_abi_cdecl; sym_kVectorcall; sym_kVarargs; sym_kWinapi;
   sym_kAlias; sym_kAsm; sym_kBegin; sym_kCase; sym_kClass; sym_kConst; sym_kConstructor;
   sym_kDestructor; sym_kExports; sym_kFor; sym_kFunction; sym_kGoto; sym_kIf; sym_kInherited;
   sym_kInline; sym_kLabel; sym_kNil; sym_kNot; sym_kProcedure; sym_kProperty; sym_kRaise;
   sym_kRepeat; sym_kResourcestring; sym_kString; sym_kThreadvar; sym_kTry; sym_kType; sym_kUses;
   sym_kVar; sym_kWhile; sym_kWith]].

(** State 1237. *)
Definition ts_parse_table_1237 : parse_row :=
  [ACTIONS 9850 [anon_sym_SEMI; anon_sym_COMMA; anon_sym_LBRACK]; ACTIONS 9852 [anon_sym_LPAREN];
   ACTIONS 9850 [aux_sym__literalString_token1; anon_sym_POUND];
   ACTIONS 9852 [aux_sym__literalInt_token1]; ACTIONS 9850 [aux_sym__literalInt_token2;
   aux_sym__literalInt_token3]; ACTIONS 9852 [aux_sym__literalFloat_token1];
   ACTIONS 9850 [aux_sym_ppUsesBlock_token1; aux_sym_ppUsesBlock_token2;
   aux_sym_ppUsesBlock_token3]; ACTIONS 9852 [sym_kAdd; sym_kSub]; ACTIONS 9850 [sym_kAt;
   sym_kTrue; sym_kFalse]; ACTIONS 3 [sym__space]; ACTIONS 5 [sym_ppDirective];
   ACTIONS 3 [sym_comment]; ACTIONS 9850 [sym_ppFragmentExpr; sym__literalStringMultiline;
   sym_identifier; sym_kDefault; sym_kNodefault; sym_kDispId; sym_kGeneric; sym_kSpecialize;
   sym_kOperator; sym_kPublic; sym_kStatic; sym_kVirtual; sym_kAbstract; sym_kDynamic;
   sym_kOverride; sym_kOverload; sym_kReintroduce; sym_kStdcall; sym_kCdecl; sym_kCppdecl;
   sym_kPascal; sym_kRegister; sym_kMwpascal; sym_kMessage; sym_kDeprecated; sym_kExperimental;
   sym_kPlatform; sym_kUnimplemented; sym_kCvar; sym_kExport; sym_kFar; sym_kNear; sym_kSafecall;
   sym_kAssembler; sym_kNostackframe; sym_kInterrupt; sym_kNoreturn; sym_kIocheck; sym_kLocal;
   sym_kHardfloat; sym_kSoftfloat; sym_kMs_abi_default; sym_kMs_abi_cdecl; sym_kSaveregisters;
   sym_kSysv_abi_default; sym_kSysv_abi_cdecl; sym_kVectorcall; sym_kVarargs; sym_kWinapi;
   sym_kAlias; sym_kAsm; sym_kBegin; sym_kCase; sym_kClass; sym_kConst; sym_kConstructor;
   sym_kDestructor; sym_kExports; sym_kFor; sym_kFunction; sym_kGoto; sym_kIf; sym_kInherited;
   sym_kInline; sym_kLabel; sym_kNil; sym_kNot; sym_kProcedure; sym_kProperty; sym_kRaise;
   sym_kRepeat; sym_kResourcestring; sym_kString; sym_kThreadvar; sym_kTry; sym_kType; sym_kUses;
   sym_kVar; sym_kWhile; sym_kWith]].

(** State 1238. *)
Definition ts_parse_table_1238 : parse_row :=
  [STATE 13920 [sym_if]; STATE 14112 [sym_ifElse; sym_while; sym_repeat; sym_for; sym_foreach;
   sym_try; sym_case; sym_block; sym_asm; sym_with; sym_raise; sym_statement; sym_goto;
   sym__statement]; STATE 14724 [sym_ifTr; sym_ifElseTr; sym_whileTr; sym_repeatTr; sym_forTr;
   sym_foreachTr; sym_tryTr; sym_caseTr]; STATE 15738 [sym_blockTr]; STATE 14724 [sym_asmTr;
   sym_withTr; sym_raiseTr; sym_statementTr; sym_gotoTr; sym__statementTr];
   STATE 13502 [sym_assignment]; STATE 11905 [sym_varAssignDef]; STATE 13502 [sym_varDef;
   sym_constDef]; STATE 6187 [sym_label]; STATE 7994 [sym__expr; sym_exprConditional];
   STATE 7363 [sym__ref; sym_lambda; sym_inherited; sym_exprDot; sym_exprDeref; sym_exprAs;
   sym_exprTpl; sym_exprSubscript; sym_exprCall]; STATE 7994 [sym_exprBinary; sym_exprUnary];
   STATE 7363 [sym_exprParens; sym_exprBrackets; sym__literal; sym_literalString];
   STATE 6967 [sym__literalString; sym_literalChar]; STATE 7363 [sym_literalNumber];
   STATE 7660 [sym__literalInt; sym__literalFloat];
   STATE 6187 [aux_sym_labeledStatement_repeat1]; STATE 6967 [aux_sym_literalString_repeat1];
   ACTIONS 10746 [anon_sym_SEMI]; ACTIONS 9986 [anon_sym_LBRACK]; ACTIONS 9988 [anon_sym_LPAREN];
   ACTIONS 9990 [aux_sym__literalString_token1]; ACTIONS 9992 [anon_sym_POUND];
   ACTIONS 9994 [aux_sym__literalInt_token1]; ACTIONS 9996 [aux_sym__literalInt_token2;
   aux_sym__literalInt_token3]; ACTIONS 9994 [aux_sym__literalFloat_token1];
   ACTIONS 9998 [sym_kAdd; sym_kSub]; ACTIONS 10000 [sym_kAt]; ACTIONS 10002 [sym_kTrue;
   sym_kFalse]; ACTIONS 10004 [sym_labelNumber]; ACTIONS 3 [sym__space];
   ACTIONS 5 [sym_ppDirective]; ACTIONS 3 [sym_comment]; ACTIONS 10002 [sym_ppFragmentExpr];
   ACTIONS 9990 [sym__literalStringMultiline]; ACTIONS 10006 [sym_identifier];
   ACTIONS 10008 [sym_kSpecialize]; ACTIONS 10162 [sym_kAsm]; ACTIONS 10164 [sym_kBegin];
   ACTIONS 10166 [sym_kCase]; ACTIONS 10016 [sym_kConst]; ACTIONS 4439 [sym_kElse];
   ACTIONS 10170 [sym_kFor]; ACTIONS 10020 [sym_kFunction]; ACTIONS 10172 [sym_kGoto];
   ACTIONS 10174 [sym_kIf]; ACTIONS 10026 [sym_kInherited]; ACTIONS 10002 [sym_kNil];
   ACTIONS 10000 [sym_kNot]; ACTIONS 10020 [sym_kProcedure]; ACTIONS 10176 [sym_kRaise];
   ACTIONS 10178 [sym_kRepeat]; ACTIONS 10032 [sym_kString]; ACTIONS 10180 [sym_kTry];
   ACTIONS 10036 [sym_kVar]; ACTIONS 10182 [sym_kWhile]; ACTIONS 10184 [sym_kWith]].

(** State 1239. *)
Definition ts_parse_table_1239 : parse_row :=
  [STATE 6463 [sym_if]; STATE 6476 [sym_ifElse; sym_while; sym_repeat; sym_for; sym_foreach;
   sym_try; sym_case; sym_block; sym_asm; sym_with; sym_raise; sym_statement; sym_goto;
   sym__statement]; STATE 14724 [sym_ifTr; sym_ifElseTr; sym_whileTr; sym_repeatTr; sym_forTr;
   sym_foreachTr; sym_tryTr; sym_caseTr]; STATE 15738 [sym_blockTr]; STATE 14724 [sym_asmTr;
   sym_withTr; sym_raiseTr; sym_statementTr; sym_gotoTr; sym__statementTr];
   STATE 14065 [sym_assignment]; STATE 11905 [sym_varAssignDef]; STATE 14065 [sym_varDef;
   sym_constDef]; STATE 6187 [sym_label]; STATE 8094 [sym__expr; sym_exprConditional];
   STATE 7363 [sym__ref; sym_lambda; sym_inherited; sym_exprDot; sym_exprDeref; sym_exprAs;
   sym_exprTpl; sym_exprSubscript; sym_exprCall]; STATE 8094 [sym_exprBinary; sym_exprUnary];
   STATE 7363 [sym_exprParens; sym_exprBrackets; sym__literal; sym_literalString];
   STATE 6967 [sym__literalString; sym_literalChar]; STATE 7363 [sym_literalNumber];
   STATE 7660 [sym__literalInt; sym__literalFloat];
   STATE 6187 [aux_sym_labeledStatement_repeat1]; STATE 6967 [aux_sym_literalString_repeat1];
   ACTIONS 10748 [anon_sym_SEMI]; ACTIONS 9986 [anon_sym_LBRACK]; ACTIONS 9988 [anon_sym_LPAREN];
   ACTIONS 9990 [aux_sym__literalString_token1]; ACTIONS 9992 [anon_sym_POUND];
   ACTIONS 9994 [aux_sym__literalInt_token1]; ACTIONS 9996 [aux_sym__literalInt_token2;
   aux_sym__literalInt_token3]; ACTIONS 9994 [aux_sym__literalFloat_token1];
   ACTIONS 9998 [sym_kAdd; sym_kSub]; ACTIONS 10000 [sym_kAt]; ACTIONS 10002 [sym_kTrue;
   sym_kFalse]; ACTIONS 10004 [sym_labelNumber]; ACTIONS 3 [sym__space];
   ACTIONS 5 [sym_ppDirective]; ACTIONS 3 [sym_comment]; ACTIONS 10002 [sym_ppFragmentExpr];
   ACTIONS 9990 [sym__literalStringMultiline]; ACTIONS 10006 [sym_identifier];
   ACTIONS 10008 [sym_kSpecialize]; ACTIONS 10068 [sym_kAsm]; ACTIONS 10070 [sym_kBegin];
   ACTIONS 10072 [sym_kCase]; ACTIONS 10016 [sym_kConst]; ACTIONS 4439 [sym_kElse];
   ACTIONS 10074 [sym_kFor]; ACTIONS 10020 [sym_kFunction]; ACTIONS 10076 [sym_kGoto];
   ACTIONS 10078 [sym_kIf]; ACTIONS 10026 [sym_kInherited]; ACTIONS 10002 [sym_kNil];
   ACTIONS 10000 [sym_kNot]; ACTIONS 10020 [sym_kProcedure]; ACTIONS 10080 [sym_kRaise];
   ACTIONS 10082 [sym_kRepeat]; ACTIONS 10032 [sym_kString]; ACTIONS 10084 [sym_kTry];
   ACTIONS 10036 [sym_kVar]; ACTIONS 10086 [sym_kWhile]; ACTIONS 10088 [sym_kWith]].

(** State 1240. *)
Definition ts_parse_table_1240 : parse_row :=
  [ACTIONS 10750 [anon_sym_SEMI; anon_sym_COMMA; anon_sym_LBRACK];
   ACTIONS 10752 [anon_sym_LPAREN]; ACTIONS 10750 [aux_sym__literalString_token1;
   anon_sym_POUND]; ACTIONS 10752 [aux_sym__literalInt_token1];
   ACTIONS 10750 [aux_sym__literalInt_token2; aux_sym__literalInt_token3];
   ACTIONS 10752 [aux_sym__literalFloat_token1]; ACTIONS 10750 [aux_sym_ppUsesBlock_token1;
   aux_sym_ppUsesBlock_token2; aux_sym_ppUsesBlock_token3]; ACTIONS 10752 [sym_kAdd; sym_kSub];
   ACTIONS 10750 [sym_kAt; sym_kTrue; sym_kFalse]; ACTIONS 3 [sym__space];
   ACTIONS 5 [sym_ppDirective]; ACTIONS 3 [sym_comment]; ACTIONS 10750 [sym_ppFragmentExpr;
   sym__literalStringMultiline; sym_identifier; sym_kDefault; sym_kNodefault; sym_kDispId;
   sym_kGeneric; sym_kSpecialize; sym_kOperator; sym_kPublic; sym_kStatic; sym_kVirtual;
   sym_kAbstract; sym_kDynamic; sym_kOverride; sym_kOverload; sym_kReintroduce; sym_kStdcall;
   sym_kCdecl; sym_kCppdecl; sym_kPascal; sym_kRegister; sym_kMwpascal; sym_kMessage;
   sym_kDeprecated; sym_kExperimental; sym_kPlatform; sym_kUnimplemented; sym_kCvar; sym_kExport;
   sym_kFar; sym_kNear; sym_kSafecall; sym_kAssembler; sym_kNostackframe; sym_kInterrupt;
   sym_kNoreturn; sym_kIocheck; sym_kLocal; sym_kHardfloat; sym_kSoftfloat; sym_kMs_abi_default;
   sym_kMs_abi_cdecl; sym_kSaveregisters; sym_kSysv_abi_default; sym_kSysv_abi_cdecl;
   sym_kVectorcall; sym_kVarargs; sym_kWinapi; sym_kAlias; sym_kAsm; sym_kBegin; sym_kCase;
   sym_kClass; sym_kConst; sym_kConstructor; sym_kDestructor; sym_kElse; sym_kExports; sym_kFor;
   sym_kFunction; sym_kGoto; sym_kIf; sym_kInherited; sym_kLabel; sym_kNil; sym_kNot;
   sym_kProcedure; sym_kProperty; sym_kRaise; sym_kRepeat; sym_kResourcestring; sym_kString;
   sym_kThreadvar; sym_kTry; sym_kType; sym_kUses; sym_kVar; sym_kWhile; sym_kWith]].

(** State 1241. *)
Definition ts_parse_table_1241 : parse_row :=
  [STATE 6747 [sym_if]; STATE 6753 [sym_ifElse; sym_while; sym_repeat; sym_for; sym_foreach;
   sym_try; sym_case; sym_block; sym_asm; sym_with; sym_raise; sym_statement; sym_goto;
   sym__statement]; STATE 14724 [sym_ifTr; sym_ifElseTr; sym_whileTr; sym_repeatTr; sym_forTr;
   sym_foreachTr; sym_tryTr; sym_caseTr]; STATE 15738 [sym_blockTr]; STATE 14724 [sym_asmTr;
   sym_withTr; sym_raiseTr; sym_statementTr; sym_gotoTr; sym__statementTr];
   STATE 13971 [sym_assignment]; STATE 11905 [sym_varAssignDef]; STATE 13971 [sym_varDef;
   sym_constDef]; STATE 6187 [sym_label]; STATE 8140 [sym__expr; sym_exprConditional];
   STATE 7363 [sym__ref; sym_lambda; sym_inherited; sym_exprDot; sym_exprDeref; sym_exprAs;
   sym_exprTpl; sym_exprSubscript; sym_exprCall]; STATE 8140 [sym_exprBinary; sym_exprUnary];
   STATE 7363 [sym_exprParens; sym_exprBrackets; sym__literal; sym_literalString];
   STATE 6967 [sym__literalString; sym_literalChar]; STATE 7363 [sym_literalNumber];
   STATE 7660 [sym__literalInt; sym__literalFloat];
   STATE 6187 [aux_sym_labeledStatement_repeat1]; STATE 6967 [aux_sym_literalString_repeat1];
   ACTIONS 10754 [anon_sym_SEMI]; ACTIONS 9986 [anon_sym_LBRACK]; ACTIONS 9988 [anon_sym_LPAREN];
   ACTIONS 9990 [aux_sym__literalString_token1]; ACTIONS 9992 [anon_sym_POUND];
   ACTIONS 9994 [aux_sym__literalInt_token1]; ACTIONS 9996 [aux_sym__literalInt_token2;
   aux_sym__literalInt_token3]; ACTIONS 9994 [aux_sym__literalFloat_token1];
   ACTIONS 9998 [sym_kAdd; sym_kSub]; ACTIONS 10000 [sym_kAt]; ACTIONS 10002 [sym_kTrue;
   sym_kFalse]; ACTIONS 10004 [sym_labelNumber]; ACTIONS 3 [sym__space];
   ACTIONS 5 [sym_ppDirective]; ACTIONS 3 [sym_comment]; ACTIONS 10002 [sym_ppFragmentExpr];
   ACTIONS 9990 [sym__literalStringMultiline]; ACTIONS 10006 [sym_identifier];
   ACTIONS 10008 [sym_kSpecialize]; ACTIONS 10044 [sym_kAsm]; ACTIONS 10046 [sym_kBegin];
   ACTIONS 10048 [sym_kCase]; ACTIONS 10016 [sym_kConst]; ACTIONS 4439 [sym_kElse];
   ACTIONS 10050 [sym_kFor]; ACTIONS 10020 [sym_kFunction]; ACTIONS 10052 [sym_kGoto];
   ACTIONS 10054 [sym_kIf]; ACTIONS 10026 [sym_kInherited]; ACTIONS 10002 [sym_kNil];
   ACTIONS 10000 [sym_kNot]; ACTIONS 10020 [sym_kProcedure]; ACTIONS 10056 [sym_kRaise];
   ACTIONS 10058 [sym_kRepeat]; ACTIONS 10032 [sym_kString]; ACTIONS 10060 [sym_kTry];
   ACTIONS 10036 [sym_kVar]; ACTIONS 10062 [sym_kWhile]; ACTIONS 10064 [sym_kWith]].

(** State 1242. *)
Definition ts_parse_table_1242 : parse_row :=
  [STATE 6532 [sym_if]; STATE 6490 [sym_ifElse; sym_while; sym_repeat; sym_for; sym_foreach;
   sym_try; sym_case; sym_block; sym_asm; sym_with; sym_raise; sym_statement; sym_goto;
   sym__statement]; STATE 15037 [sym_ifTr; sym_ifElseTr; sym_whileTr; sym_repeatTr; sym_forTr;
   sym_foreachTr; sym_tryTr; sym_caseTr]; STATE 15738 [sym_blockTr]; STATE 15037 [sym_asmTr;
   sym_withTr; sym_raiseTr; sym_statementTr; sym_gotoTr; sym__statementTr];
   STATE 13641 [sym_assignment]; STATE 11905 [sym_varAssignDef]; STATE 13641 [sym_varDef;
   sym_constDef]; STATE 1250 [sym_label]; STATE 7999 [sym__expr; sym_exprConditional];
   STATE 7363 [sym__ref; sym_lambda; sym_inherited; sym_exprDot; sym_exprDeref; sym_exprAs;
   sym_exprTpl; sym_exprSubscript; sym_exprCall]; STATE 7999 [sym_exprBinary; sym_exprUnary];
   STATE 7363 [sym_exprParens; sym_exprBrackets; sym__literal; sym_literalString];
   STATE 6967 [sym__literalString; sym_literalChar]; STATE 7363 [sym_literalNumber];
   STATE 7660 [sym__literalInt; sym__literalFloat];
   STATE 1250 [aux_sym_labeledStatement_repeat1]; STATE 6967 [aux_sym_literalString_repeat1];
   ACTIONS 10756 [anon_sym_SEMI]; ACTIONS 9986 [anon_sym_LBRACK]; ACTIONS 9988 [anon_sym_LPAREN];
   ACTIONS 9990 [aux_sym__literalString_token1]; ACTIONS 9992 [anon_sym_POUND];
   ACTIONS 9994 [aux_sym__literalInt_token1]; ACTIONS 9996 [aux_sym__literalInt_token2;
   aux_sym__literalInt_token3]; ACTIONS 9994 [aux_sym__literalFloat_token1];
   ACTIONS 9998 [sym_kAdd; sym_kSub]; ACTIONS 10000 [sym_kAt]; ACTIONS 10002 [sym_kTrue;
   sym_kFalse]; ACTIONS 10004 [sym_labelNumber]; ACTIONS 3 [sym__space];
   ACTIONS 5 [sym_ppDirective]; ACTIONS 3 [sym_comment]; ACTIONS 10002 [sym_ppFragmentExpr];
   ACTIONS 9990 [sym__literalStringMultiline]; ACTIONS 10006 [sym_identifier];
   ACTIONS 10008 [sym_kSpecialize]; ACTIONS 10308 [sym_kAsm]; ACTIONS 10310 [sym_kBegin];
   ACTIONS 10312 [sym_kCase]; ACTIONS 10016 [sym_kConst]; ACTIONS 4301 [sym_kElse];
   ACTIONS 10314 [sym_kFor]; ACTIONS 10020 [sym_kFunction]; ACTIONS 10316 [sym_kGoto];
   ACTIONS 10318 [sym_kIf]; ACTIONS 10026 [sym_kInherited]; ACTIONS 10002 [sym_kNil];
   ACTIONS 10000 [sym_kNot]; ACTIONS 10020 [sym_kProcedure]; ACTIONS 10320 [sym_kRaise];
   ACTIONS 10322 [sym_kRepeat]; ACTIONS 10032 [sym_kString]; ACTIONS 10324 [sym_kTry];
   ACTIONS 10036 [sym_kVar]; ACTIONS 10326 [sym_kWhile]; ACTIONS 10328 [sym_kWith]].

(** State 1243. *)
Definition ts_parse_table_1243 : parse_row :=
  [STATE 1277 [sym_if]; STATE 1285 [sym_ifElse; sym_while; sym_repeat; sym_for; sym_foreach;
   sym_try; sym_case; sym_block; sym_asm; sym_with; sym_raise; sym_statement; sym_goto;
   sym__statement]; STATE 14724 [sym_ifTr; sym_ifElseTr; sym_whileTr; sym_repeatTr; sym_forTr;
   sym_foreachTr; sym_tryTr; sym_caseTr]; STATE 15738 [sym_blockTr]; STATE 14724 [sym_asmTr;
   sym_withTr; sym_raiseTr; sym_statementTr; sym_gotoTr; sym__statementTr];
   STATE 13593 [sym_assignment]; STATE 11905 [sym_varAssignDef]; STATE 13593 [sym_varDef;
   sym_constDef]; STATE 6187 [sym_label]; STATE 8058 [sym__expr; sym_exprConditional];
   STATE 7363 [sym__ref; sym_lambda; sym_inherited; sym_exprDot; sym_exprDeref; sym_exprAs;
   sym_exprTpl; sym_exprSubscript; sym_exprCall]; STATE 8058 [sym_exprBinary; sym_exprUnary];
   STATE 7363 [sym_exprParens; sym_exprBrackets; sym__literal; sym_literalString];
   STATE 6967 [sym__literalString; sym_literalChar]; STATE 7363 [sym_literalNumber];
   STATE 7660 [sym__literalInt; sym__literalFloat];
   STATE 6187 [aux_sym_labeledStatement_repeat1]; STATE 6967 [aux_sym_literalString_repeat1];
   ACTIONS 10758 [anon_sym_SEMI]; ACTIONS 9986 [anon_sym_LBRACK]; ACTIONS 9988 [anon_sym_LPAREN];
   ACTIONS 9990 [aux_sym__literalString_token1]; ACTIONS 9992 [anon_sym_POUND];
   ACTIONS 9994 [aux_sym__literalInt_token1]; ACTIONS 9996 [aux_sym__literalInt_token2;
   aux_sym__literalInt_token3]; ACTIONS 9994 [aux_sym__literalFloat_token1];
   ACTIONS 9998 [sym_kAdd; sym_kSub]; ACTIONS 10000 [sym_kAt]; ACTIONS 10002 [sym_kTrue;
   sym_kFalse]; ACTIONS 10004 [sym_labelNumber]; ACTIONS 3 [sym__space];
   ACTIONS 5 [sym_ppDirective]; ACTIONS 3 [sym_comment]; ACTIONS 10002 [sym_ppFragmentExpr];
   ACTIONS 9990 [sym__literalStringMultiline]; ACTIONS 10006 [sym_identifier];
   ACTIONS 10008 [sym_kSpecialize]; ACTIONS 10422 [sym_kAsm]; ACTIONS 10424 [sym_kBegin];
   ACTIONS 10426 [sym_kCase]; ACTIONS 10016 [sym_kConst]; ACTIONS 4439 [sym_kElse];
   ACTIONS 10428 [sym_kFor]; ACTIONS 10020 [sym_kFunction]; ACTIONS 10430 [sym_kGoto];
   ACTIONS 10432 [sym_kIf]; ACTIONS 10026 [sym_kInherited]; ACTIONS 10002 [sym_kNil];
   ACTIONS 10000 [sym_kNot]; ACTIONS 10020 [sym_kProcedure]; ACTIONS 10434 [sym_kRaise];
   ACTIONS 10436 [sym_kRepeat]; ACTIONS 10032 [sym_kString]; ACTIONS 10438 [sym_kTry];
   ACTIONS 10036 [sym_kVar]; ACTIONS 10440 [sym_kWhile]; ACTIONS 10442 [sym_kWith]].

(** State 1244. *)
Definition ts_parse_table_1244 : parse_row :=
  [ACTIONS 9858 [anon_sym_SEMI; anon_sym_COMMA; anon_sym_LBRACK]; ACTIONS 9860 [anon_sym_LPAREN];
   ACTIONS 9858 [aux_sym__literalString_token1; anon_sym_POUND];
   ACTIONS 9860 [aux_sym__literalInt_token1]; ACTIONS 9858 [aux_sym__literalInt_token2;
   aux_sym__literalInt_token3]; ACTIONS 9860 [aux_sym__literalFloat_token1];
   ACTIONS 9858 [aux_sym_ppUsesBlock_token1; aux_sym_ppUsesBlock_token2;
   aux_sym_ppUsesBlock_token3]; ACTIONS 9860 [sym_kAdd; sym_kSub]; ACTIONS 9858 [sym_kAt;
   sym_kTrue; sym_kFalse]; ACTIONS 3 [sym__space]; ACTIONS 5 [sym_ppDirective];
   ACTIONS 3 [sym_comment]; ACTIONS 9858 [sym_ppFragmentExpr; sym__literalStringMultiline;
   sym_identifier; sym_kDefault; sym_kNodefault; sym_kDispId; sym_kGeneric; sym_kSpecialize;
   sym_kOperator; sym_kPublic; sym_kStatic; sym_kVirtual; sym_kAbstract; sym_kDynamic;
   sym_kOverride; sym_kOverload; sym_kReintroduce; sym_kStdcall; sym_kCdecl; sym_kCppdecl;
   sym_kPascal; sym_kRegister; sym_kMwpascal; sym_kMessage; sym_kDeprecated; sym_kExperimental;
   sym_kPlatform; sym_kUnimplemented; sym_kCvar; sym_kExport; sym_kFar; sym_kNear; sym_kSafecall;
   sym_kAssembler; sym_kNostackframe; sym_kInterrupt; sym_kNoreturn; sym_kIocheck; sym_kLocal;
   sym_kHardfloat; sym_kSoftfloat; sym_kMs_abi_default; sym_kMs_abi_cdecl; sym_kSaveregisters;
   sym_kSysv_abi_default; sym_kSysv_abi_cdecl; sym_kVectorcall; sym_kVarargs; sym_kWinapi;
   sym_kAlias; sym_kAsm; sym_kBegin; sym_kCase; sym_kClass; sym_kConst; sym_kConstructor;
   sym_kDestructor; sym_kExports; sym_kFor; sym_kFunction; sym_kGoto; sym_kIf; sym_kInherited;
   sym_kInline; sym_kLabel; sym_kNil; sym_kNot; sym_kProcedure; sym_kProperty; sym_kRaise;
   sym_kRepeat; sym_kResourcestring; sym_kString; sym_kThreadvar; sym_kTry; sym_kType; sym_kUses;
   sym_kVar; sym_kWhile; sym_kWith]].

(** State 1245. *)
Definition ts_parse_table_1245 : parse_row :=
  [ACTIONS 10760 [anon_sym_SEMI; anon_sym_COMMA; anon_sym_LBRACK];
   ACTIONS 10762 [anon_sym_LPAREN]; ACTIONS 10760 [aux_sym__literalString_token1;
   anon_sym_POUND]; ACTIONS 10762 [aux_sym__literalInt_token1];
   ACTIONS 10760 [aux_sym__literalInt_token2; aux_sym__literalInt_token3];
   ACTIONS 10762 [aux_sym__literalFloat_token1]; ACTIONS 10760 [aux_sym_ppUsesBlock_token1;
   aux_sym_ppUsesBlock_token2; aux_sym_ppUsesBlock_token3]; ACTIONS 10762 [sym_kAdd; sym_kSub];
   ACTIONS 10760 [sym_kAt; sym_kTrue; sym_kFalse]; ACTIONS 3 [sym__space];
   ACTIONS 5 [sym_ppDirective]; ACTIONS 3 [sym_comment]; ACTIONS 10760 [sym_ppFragmentExpr;
   sym__literalStringMultiline; sym_identifier; sym_kDefault; sym_kNodefault; sym_kDispId;
   sym_kGeneric; sym_kSpecialize; sym_kOperator; sym_kPublic; sym_kStatic; sym_kVirtual;
   sym_kAbstract; sym_kDynamic; sym_kOverride; sym_kOverload; sym_kReintroduce; sym_kStdcall;
   sym_kCdecl; sym_kCppdecl; sym_kPascal; sym_kRegister; sym_kMwpascal; sym_kMessage;
   sym_kDeprecated; sym_kExperimental; sym_kPlatform; sym_kUnimplemented; sym_kCvar; sym_kExport;
   sym_kFar; sym_kNear; sym_kSafecall; sym_kAssembler; sym_kNostackframe; sym_kInterrupt;
   sym_kNoreturn; sym_kIocheck; sym_kLocal; sym_kHardfloat; sym_kSoftfloat; sym_kMs_abi_default;
   sym_kMs_abi_cdecl; sym_kSaveregisters; sym_kSysv_abi_default; sym_kSysv_abi_cdecl;
   sym_kVectorcall; sym_kVarargs; sym_kWinapi; sym_kAlias; sym_kAsm; sym_kBegin; sym_kCase;
   sym_kClass; sym_kConst; sym_kConstructor; sym_kDestructor; sym_kElse; sym_kExports; sym_kFor;
   sym_kFunction; sym_kGoto; sym_kIf; sym_kInherited; sym_kLabel; sym_kNil; sym_kNot;
   sym_kProcedure; sym_kProperty; sym_kRaise; sym_kRepeat; sym_kResourcestring; sym_kString;
   sym_kThreadvar; sym_kTry; sym_kType; sym_kUses; sym_kVar; sym_kWhile; sym_kWith]].

(** State 1246. *)
Definition ts_parse_table_1246 : parse_row :=
  [STATE 6213 [sym_if]; STATE 6144 [sym_ifElse; sym_while; sym_repeat; sym_for; sym_foreach;
   sym_try; sym_case; sym_block; sym_asm; sym_with; sym_raise; sym_statement; sym_goto;
   sym__statement]; STATE 15548 [sym_ifTr; sym_ifElseTr; sym_whileTr; sym_repeatTr; sym_forTr;
   sym_foreachTr; sym_tryTr; sym_caseTr]; STATE 14251 [sym_blockTr]; STATE 15548 [sym_asmTr;
   sym_withTr; sym_raiseTr; sym_statementTr; sym_gotoTr; sym__statementTr];
   STATE 13915 [sym_assignment]; STATE 11785 [sym_varAssignDef]; STATE 13915 [sym_varDef;
   sym_constDef]; STATE 6313 [sym_label]; STATE 8019 [sym__expr; sym_exprConditional];
   STATE 7478 [sym__ref; sym_lambda; sym_inherited; sym_exprDot; sym_exprDeref; sym_exprAs;
   sym_exprTpl; sym_exprSubscript; sym_exprCall]; STATE 8019 [sym_exprBinary; sym_exprUnary];
   STATE 7478 [sym_exprParens; sym_exprBrackets; sym__literal; sym_literalString];
   STATE 6664 [sym__literalString; sym_literalChar]; STATE 7478 [sym_literalNumber];
   STATE 7742 [sym__literalInt; sym__literalFloat];
   STATE 6313 [aux_sym_labeledStatement_repeat1]; STATE 6664 [aux_sym_literalString_repeat1];
   ACTIONS 10688 [anon_sym_SEMI]; ACTIONS 399 [anon_sym_LBRACK]; ACTIONS 401 [anon_sym_LPAREN];
   ACTIONS 403 [aux_sym__literalString_token1]; ACTIONS 405 [anon_sym_POUND];
   ACTIONS 407 [aux_sym__literalInt_token1]; ACTIONS 409 [aux_sym__literalInt_token2;
   aux_sym__literalInt_token3]; ACTIONS 407 [aux_sym__literalFloat_token1];
   ACTIONS 413 [sym_kAdd; sym_kSub]; ACTIONS 415 [sym_kAt]; ACTIONS 417 [sym_kTrue; sym_kFalse];
   ACTIONS 10098 [sym_labelNumber]; ACTIONS 3 [sym__space]; ACTIONS 5 [sym_ppDirective];
   ACTIONS 3 [sym_comment]; ACTIONS 417 [sym_ppFragmentExpr];
   ACTIONS 403 [sym__literalStringMultiline]; ACTIONS 10100 [sym_identifier];
   ACTIONS 423 [sym_kSpecialize]; ACTIONS 427 [sym_kAsm]; ACTIONS 429 [sym_kBegin];
   ACTIONS 431 [sym_kCase]; ACTIONS 433 [sym_kConst]; ACTIONS 4439 [sym_kEnd];
   ACTIONS 437 [sym_kFor]; ACTIONS 439 [sym_kFunction]; ACTIONS 441 [sym_kGoto];
   ACTIONS 443 [sym_kIf]; ACTIONS 445 [sym_kInherited]; ACTIONS 417 [sym_kNil];
   ACTIONS 415 [sym_kNot]; ACTIONS 439 [sym_kProcedure]; ACTIONS 447 [sym_kRaise];
   ACTIONS 449 [sym_kRepeat]; ACTIONS 451 [sym_kString]; ACTIONS 453 [sym_kTry];
   ACTIONS 455 [sym_kVar]; ACTIONS 457 [sym_kWhile]; ACTIONS 459 [sym_kWith]].

(** State 1247. *)
Definition ts_parse_table_1247 : parse_row :=
  [ACTIONS 10720 [anon_sym_SEMI; anon_sym_COMMA; anon_sym_LBRACK];
   ACTIONS 10722 [anon_sym_LPAREN]; ACTIONS 10720 [aux_sym__literalString_token1;
   anon_sym_POUND]; ACTIONS 10722 [aux_sym__literalInt_token1];
   ACTIONS 10720 [aux_sym__literalInt_token2; aux_sym__literalInt_token3];
   ACTIONS 10722 [aux_sym__literalFloat_token1]; ACTIONS 10720 [aux_sym_ppUsesBlock_token1;
   aux_sym_ppUsesBlock_token2; aux_sym_ppUsesBlock_token3]; ACTIONS 10722 [sym_kAdd; sym_kSub];
   ACTIONS 10720 [sym_kAt; sym_kTrue; sym_kFalse]; ACTIONS 3 [sym__space];
   ACTIONS 5 [sym_ppDirective]; ACTIONS 3 [sym_comment]; ACTIONS 10720 [sym_ppFragmentExpr;
   sym__literalStringMultiline; sym_identifier; sym_kDefault; sym_kNodefault; sym_kDispId;
   sym_kGeneric; sym_kSpecialize; sym_kOperator; sym_kPublic; sym_kStatic; sym_kVirtual;
   sym_kAbstract; sym_kDynamic; sym_kOverride; sym_kOverload; sym_kReintroduce; sym_kStdcall;
   sym_kCdecl; sym_kCppdecl; sym_kPascal; sym_kRegister; sym_kMwpascal; sym_kMessage;
   sym_kDeprecated; sym_kExperimental; sym_kPlatform; sym_kUnimplemented; sym_kCvar; sym_kExport;
   sym_kFar; sym_kNear; sym_kSafecall; sym_kAssembler; sym_kNostackframe; sym_kInterrupt;
   sym_kNoreturn; sym_kIocheck; sym_kLocal; sym_kHardfloat; sym_kSoftfloat; sym_kMs_abi_default;
   sym_kMs_abi_cdecl; sym_kSaveregisters; sym_kSysv_abi_default; sym_kSysv_abi_cdecl;
   sym_kVectorcall; sym_kVarargs; sym_kWinapi; sym_kAlias; sym_kAsm; sym_kBegin; sym_kCase;
   sym_kClass; sym_kConst; sym_kConstructor; sym_kDestructor]; ACTIONS 10764 [sym_kElse];
   ACTIONS 10720 [sym_kExports; sym_kFor; sym_kFunction; sym_kGoto; sym_kIf; sym_kInherited;
   sym_kLabel; sym_kNil; sym_kNot; sym_kProcedure; sym_kProperty; sym_kRaise; sym_kRepeat;
   sym_kResourcestring; sym_kString; sym_kThreadvar; sym_kTry; sym_kType; sym_kUses; sym_kVar;
   sym_kWhile; sym_kWith]].

(** State 1248. *)
Definition ts_parse_table_1248 : parse_row :=
  [ACTIONS 10766 [anon_sym_SEMI; anon_sym_COMMA; anon_sym_LBRACK];
   ACTIONS 10768 [anon_sym_LPAREN]; ACTIONS 10766 [aux_sym__literalString_token1;
   anon_sym_POUND]; ACTIONS 10768 [aux_sym__literalInt_token1];
   ACTIONS 10766 [aux_sym__literalInt_token2; aux_sym__literalInt_token3];
   ACTIONS 10768 [aux_sym__literalFloat_token1]; ACTIONS 10766 [aux_sym_ppUsesBlock_token1;
   aux_sym_ppUsesBlock_token2; aux_sym_ppUsesBlock_token3]; ACTIONS 10768 [sym_kAdd; sym_kSub];
   ACTIONS 10766 [sym_kAt; sym_kTrue; sym_kFalse]; ACTIONS 3 [sym__space];
   ACTIONS 5 [sym_ppDirective]; ACTIONS 3 [sym_comment]; ACTIONS 10766 [sym_ppFragmentExpr;
   sym__literalStringMultiline; sym_identifier; sym_kDefault; sym_kNodefault; sym_kDispId;
   sym_kGeneric; sym_kSpecialize; sym_kOperator; sym_kPublic; sym_kStatic; sym_kVirtual;
   sym_kAbstract; sym_kDynamic; sym_kOverride; sym_kOverload; sym_kReintroduce; sym_kStdcall;
   sym_kCdecl; sym_kCppdecl; sym_kPascal; sym_kRegister; sym_kMwpascal; sym_kMessage;
   sym_kDeprecated; sym_kExperimental; sym_kPlatform; sym_kUnimplemented; sym_kCvar; sym_kExport;
   sym_kFar; sym_kNear; sym_kSafecall; sym_kAssembler; sym_kNostackframe; sym_kInterrupt;
   sym_kNoreturn; sym_kIocheck; sym_kLocal; sym_kHardfloat; sym_kSoftfloat; sym_kMs_abi_default;
   sym_kMs_abi_cdecl; sym_kSaveregisters; sym_kSysv_abi_default; sym_kSysv_abi_cdecl;
   sym_kVectorcall; sym_kVarargs; sym_kWinapi; sym_kAlias; sym_kAsm; sym_kBegin; sym_kCase;
   sym_kClass; sym_kConst; sym_kConstructor; sym_kDestructor; sym_kElse; sym_kExports; sym_kFor;
   sym_kFunction; sym_kGoto; sym_kIf; sym_kInherited; sym_kLabel; sym_kNil; sym_kNot;
   sym_kProcedure; sym_kProperty; sym_kRaise; sym_kRepeat; sym_kResourcestring; sym_kString;
   sym_kThreadvar; sym_kTry; sym_kType; sym_kUses; sym_kVar; sym_kWhile; sym_kWith]].

(** State 1249. *)
Definition ts_parse_table_1249 : parse_row :=
  [ACTIONS 10720 [anon_sym_SEMI; anon_sym_COMMA; anon_sym_LBRACK];
   ACTIONS 10722 [anon_sym_LPAREN]; ACTIONS 10720 [aux_sym__literalString_token1;
   anon_sym_POUND]; ACTIONS 10722 [aux_sym__literalInt_token1];
   ACTIONS 10720 [aux_sym__literalInt_token2; aux_sym__literalInt_token3];
   ACTIONS 10722 [aux_sym__literalFloat_token1]; ACTIONS 10720 [aux_sym_ppUsesBlock_token1;
   aux_sym_ppUsesBlock_token2; aux_sym_ppUsesBlock_token3]; ACTIONS 10722 [sym_kAdd; sym_kSub];
   ACTIONS 10720 [sym_kAt; sym_kTrue; sym_kFalse]; ACTIONS 3 [sym__space];
   ACTIONS 5 [sym_ppDirective]; ACTIONS 3 [sym_comment]; ACTIONS 10720 [sym_ppFragmentExpr;
   sym__literalStringMultiline; sym_identifier; sym_kDefault; sym_kNodefault; sym_kDispId;
   sym_kGeneric; sym_kSpecialize; sym_kOperator; sym_kPublic; sym_kStatic; sym_kVirtual;
   sym_kAbstract; sym_kDynamic; sym_kOverride; sym_kOverload; sym_kReintroduce; sym_kStdcall;
   sym_kCdecl; sym_kCppdecl; sym_kPascal; sym_kRegister; sym_kMwpascal; sym_kMessage;
   sym_kDeprecated; sym_kExperimental; sym_kPlatform; sym_kUnimplemented; sym_kCvar; sym_kExport;
   sym_kFar; sym_kNear; sym_kSafecall; sym_kAssembler; sym_kNostackframe; sym_kInterrupt;
   sym_kNoreturn; sym_kIocheck; sym_kLocal; sym_kHardfloat; sym_kSoftfloat; sym_kMs_abi_default;
   sym_kMs_abi_cdecl; sym_kSaveregisters; sym_kSysv_abi_default; sym_kSysv_abi_cdecl;
   sym_kVectorcall; sym_kVarargs; sym_kWinapi; sym_kAlias; sym_kAsm; sym_kBegin; sym_kCase;
   sym_kClass; sym_kConst; sym_kConstructor; sym_kDestructor]; ACTIONS 10770 [sym_kElse];
   ACTIONS 10720 [sym_kExports; sym_kFor; sym_kFunction; sym_kGoto; sym_kIf; sym_kInherited;
   sym_kLabel; sym_kNil; sym_kNot; sym_kProcedure; sym_kProperty; sym_kRaise; sym_kRepeat;
   sym_kResourcestring; sym_kString; sym_kThreadvar; sym_kTry; sym_kType; sym_kUses; sym_kVar;
   sym_kWhile; sym_kWith]].

(** State 1250. *)
Definition ts_parse_table_1250 : parse_row :=
  [STATE 6532 [sym_if]; STATE 6520 [sym_ifElse; sym_while; sym_repeat; sym_for; sym_foreach;
   sym_try; sym_case; sym_block; sym_asm; sym_with; sym_raise; sym_statement; sym_goto;
   sym__statement]; STATE 14724 [sym_ifTr; sym_ifElseTr; sym_whileTr; sym_repeatTr; sym_forTr;
   sym_foreachTr; sym_tryTr; sym_caseTr]; STATE 15738 [sym_blockTr]; STATE 14724 [sym_asmTr;
   sym_withTr; sym_raiseTr; sym_statementTr; sym_gotoTr; sym__statementTr];
   STATE 13641 [sym_assignment]; STATE 11905 [sym_varAssignDef]; STATE 13641 [sym_varDef;
   sym_constDef]; STATE 6187 [sym_label]; STATE 7999 [sym__expr; sym_exprConditional];
   STATE 7363 [sym__ref; sym_lambda; sym_inherited; sym_exprDot; sym_exprDeref; sym_exprAs;
   sym_exprTpl; sym_exprSubscript; sym_exprCall]; STATE 7999 [sym_exprBinary; sym_exprUnary];
   STATE 7363 [sym_exprParens; sym_exprBrackets; sym__literal; sym_literalString];
   STATE 6967 [sym__literalString; sym_literalChar]; STATE 7363 [sym_literalNumber];
   STATE 7660 [sym__literalInt; sym__literalFloat];
   STATE 6187 [aux_sym_labeledStatement_repeat1]; STATE 6967 [aux_sym_literalString_repeat1];
   ACTIONS 10772 [anon_sym_SEMI]; ACTIONS 9986 [anon_sym_LBRACK]; ACTIONS 9988 [anon_sym_LPAREN];
   ACTIONS 9990 [aux_sym__literalString_token1]; ACTIONS 9992 [anon_sym_POUND];
   ACTIONS 9994 [aux_sym__literalInt_token1]; ACTIONS 9996 [aux_sym__literalInt_token2;
   aux_sym__literalInt_token3]; ACTIONS 9994 [aux_sym__literalFloat_token1];
   ACTIONS 9998 [sym_kAdd; sym_kSub]; ACTIONS 10000 [sym_kAt]; ACTIONS 10002 [sym_kTrue;
   sym_kFalse]; ACTIONS 10004 [sym_labelNumber]; ACTIONS 3 [sym__space];
   ACTIONS 5 [sym_ppDirective]; ACTIONS 3 [sym_comment]; ACTIONS 10002 [sym_ppFragmentExpr];
   ACTIONS 9990 [sym__literalStringMultiline]; ACTIONS 10006 [sym_identifier];
   ACTIONS 10008 [sym_kSpecialize]; ACTIONS 10308 [sym_kAsm]; ACTIONS 10310 [sym_kBegin];
   ACTIONS 10312 [sym_kCase]; ACTIONS 10016 [sym_kConst]; ACTIONS 4439 [sym_kElse];
   ACTIONS 10314 [sym_kFor]; ACTIONS 10020 [sym_kFunction]; ACTIONS 10316 [sym_kGoto];
   ACTIONS 10318 [sym_kIf]; ACTIONS 10026 [sym_kInherited]; ACTIONS 10002 [sym_kNil];
   ACTIONS 10000 [sym_kNot]; ACTIONS 10020 [sym_kProcedure]; ACTIONS 10320 [sym_kRaise];
   ACTIONS 10322 [sym_kRepeat]; ACTIONS 10032 [sym_kString]; ACTIONS 10324 [sym_kTry];
   ACTIONS 10036 [sym_kVar]; ACTIONS 10326 [sym_kWhile]; ACTIONS 10328 [sym_kWith]].

(** State 1251. *)
Definition ts_parse_table_1251 : parse_row :=
  [ACTIONS 10774 [anon_sym_SEMI; anon_sym_COMMA; anon_sym_LBRACK];
   ACTIONS 10776 [anon_sym_LPAREN]; ACTIONS 10774 [aux_sym__literalString_token1;
   anon_sym_POUND]; ACTIONS 10776 [aux_sym__literalInt_token1];
   ACTIONS 10774 [aux_sym__literalInt_token2; aux_sym__literalInt_token3];
   ACTIONS 10776 [aux_sym__literalFloat_token1]; ACTIONS 10774 [aux_sym_ppUsesBlock_token1;
   aux_sym_ppUsesBlock_token2; aux_sym_ppUsesBlock_token3]; ACTIONS 10776 [sym_kAdd; sym_kSub];
   ACTIONS 10774 [sym_kAt; sym_kTrue; sym_kFalse]; ACTIONS 3 [sym__space];
   ACTIONS 5 [sym_ppDirective]; ACTIONS 3 [sym_comment]; ACTIONS 10774 [sym_ppFragmentExpr;
   sym__literalStringMultiline; sym_identifier; sym_kDefault; sym_kNodefault; sym_kDispId;
   sym_kGeneric; sym_kSpecialize; sym_kOperator; sym_kPublic; sym_kStatic; sym_kVirtual;
   sym_kAbstract; sym_kDynamic; sym_kOverride; sym_kOverload; sym_kReintroduce; sym_kStdcall;
   sym_kCdecl; sym_kCppdecl; sym_kPascal; sym_kRegister; sym_kMwpascal; sym_kMessage;
   sym_kDeprecated; sym_kExperimental; sym_kPlatform; sym_kUnimplemented; sym_kCvar; sym_kExport;
   sym_kFar; sym_kNear; sym_kSafecall; sym_kAssembler; sym_kNostackframe; sym_kInterrupt;
   sym_kNoreturn; sym_kIocheck; sym_kLocal; sym_kHardfloat; sym_kSoftfloat; sym_kMs_abi_default;
   sym_kMs_abi_cdecl; sym_kSaveregisters; sym_kSysv_abi_default; sym_kSysv_abi_cdecl;
   sym_kVectorcall; sym_kVarargs; sym_kWinapi; sym_kAlias; sym_kAsm; sym_kBegin; sym_kCase;
   sym_kClass; sym_kConst; sym_kConstructor; sym_kDestructor; sym_kElse; sym_kExports; sym_kFor;
   sym_kFunction; sym_kGoto; sym_kIf; sym_kInherited; sym_kLabel; sym_kNil; sym_kNot;
   sym_kProcedure; sym_kProperty; sym_kRaise; sym_kRepeat; sym_kResourcestring; sym_kString;
   sym_kThreadvar; sym_kTry; sym_kType; sym_kUses; sym_kVar; sym_kWhile; sym_kWith]].

(** State 1252. *)
Definition ts_parse_table_1252 : parse_row :=
  [ACTIONS 10778 [anon_sym_SEMI; anon_sym_COMMA; anon_sym_LBRACK];
   ACTIONS 10780 [anon_sym_LPAREN]; ACTIONS 10778 [aux_sym__literalString_token1;
   anon_sym_POUND]; ACTIONS 10780 [aux_sym__literalInt_token1];
   ACTIONS 10778 [aux_sym__literalInt_token2; aux_sym__literalInt_token3];
   ACTIONS 10780 [aux_sym__literalFloat_token1]; ACTIONS 10778 [aux_sym_ppUsesBlock_token1;
   aux_sym_ppUsesBlock_token2; aux_sym_ppUsesBlock_token3]; ACTIONS 10780 [sym_kAdd; sym_kSub];
   ACTIONS 10778 [sym_kAt; sym_kTrue; sym_kFalse]; ACTIONS 3 [sym__space];
   ACTIONS 5 [sym_ppDirective]; ACTIONS 3 [sym_comment]; ACTIONS 10778 [sym_ppFragmentExpr;
   sym__literalStringMultiline; sym_identifier; sym_kDefault; sym_kNodefault; sym_kDispId;
   sym_kGeneric; sym_kSpecialize; sym_kOperator; sym_kPublic; sym_kStatic; sym_kVirtual;
   sym_kAbstract; sym_kDynamic; sym_kOverride; sym_kOverload; sym_kReintroduce; sym_kStdcall;
   sym_kCdecl; sym_kCppdecl; sym_kPascal; sym_kRegister; sym_kMwpascal; sym_kMessage;
   sym_kDeprecated; sym_kExperimental; sym_kPlatform; sym_kUnimplemented; sym_kCvar; sym_kExport;
   sym_kFar; sym_kNear; sym_kSafecall; sym_kAssembler; sym_kNostackframe; sym_kInterrupt;
   sym_kNoreturn; sym_kIocheck; sym_kLocal; sym_kHardfloat; sym_kSoftfloat; sym_kMs_abi_default;
   sym_kMs_abi_cdecl; sym_kSaveregisters; sym_kSysv_abi_default; sym_kSysv_abi_cdecl;
   sym_kVectorcall; sym_kVarargs; sym_kWinapi; sym_kAlias; sym_kAsm; sym_kBegin; sym_kCase;
   sym_kClass; sym_kConst; sym_kConstructor; sym_kDestructor; sym_kElse; sym_kExports; sym_kFor;
   sym_kFunction; sym_kGoto; sym_kIf; sym_kInherited; sym_kLabel; sym_kNil; sym_kNot;
   sym_kProcedure; sym_kProperty; sym_kRaise; sym_kRepeat; sym_kResourcestring; sym_kString;
   sym_kThreadvar; sym_kTry; sym_kType; sym_kUses; sym_kVar; sym_kWhile; sym_kWith]].

(** State 1253. *)
Definition ts_parse_table_1253 : parse_row :=
  [STATE 13286 [sym_if]; STATE 14117 [sym_ifElse; sym_while; sym_repeat; sym_for; sym_foreach;
   sym_try; sym_case; sym_block; sym_asm; sym_with; sym_raise; sym_statement; sym_goto;
   sym__statement]; STATE 15037 [sym_ifTr; sym_ifElseTr; sym_whileTr; sym_repeatTr; sym_forTr;
   sym_foreachTr; sym_tryTr; sym_caseTr]; STATE 15738 [sym_blockTr]; STATE 15037 [sym_asmTr;
   sym_withTr; sym_raiseTr; sym_statementTr; sym_gotoTr; sym__statementTr];
   STATE 13914 [sym_assignment]; STATE 11905 [sym_varAssignDef]; STATE 13914 [sym_varDef;
   sym_constDef]; STATE 1263 [sym_label]; STATE 8001 [sym__expr; sym_exprConditional];
   STATE 7363 [sym__ref; sym_lambda; sym_inherited; sym_exprDot; sym_exprDeref; sym_exprAs;
   sym_exprTpl; sym_exprSubscript; sym_exprCall]; STATE 8001 [sym_exprBinary; sym_exprUnary];
   STATE 7363 [sym_exprParens; sym_exprBrackets; sym__literal; sym_literalString];
   STATE 6967 [sym__literalString; sym_literalChar]; STATE 7363 [sym_literalNumber];
   STATE 7660 [sym__literalInt; sym__literalFloat];
   STATE 1263 [aux_sym_labeledStatement_repeat1]; STATE 6967 [aux_sym_literalString_repeat1];
   ACTIONS 10782 [anon_sym_SEMI]; ACTIONS 9986 [anon_sym_LBRACK]; ACTIONS 9988 [anon_sym_LPAREN];
   ACTIONS 9990 [aux_sym__literalString_token1]; ACTIONS 9992 [anon_sym_POUND];
   ACTIONS 9994 [aux_sym__literalInt_token1]; ACTIONS 9996 [aux_sym__literalInt_token2;
   aux_sym__literalInt_token3]; ACTIONS 9994 [aux_sym__literalFloat_token1];
   ACTIONS 9998 [sym_kAdd; sym_kSub]; ACTIONS 10000 [sym_kAt]; ACTIONS 10002 [sym_kTrue;
   sym_kFalse]; ACTIONS 10004 [sym_labelNumber]; ACTIONS 3 [sym__space];
   ACTIONS 5 [sym_ppDirective]; ACTIONS 3 [sym_comment]; ACTIONS 10002 [sym_ppFragmentExpr];
   ACTIONS 9990 [sym__literalStringMultiline]; ACTIONS 10006 [sym_identifier];
   ACTIONS 10008 [sym_kSpecialize]; ACTIONS 10374 [sym_kAsm]; ACTIONS 10376 [sym_kBegin];
   ACTIONS 10378 [sym_kCase]; ACTIONS 10016 [sym_kConst]; ACTIONS 4301 [sym_kElse];
   ACTIONS 10380 [sym_kFor]; ACTIONS 10020 [sym_kFunction]; ACTIONS 10382 [sym_kGoto];
   ACTIONS 10384 [sym_kIf]; ACTIONS 10026 [sym_kInherited]; ACTIONS 10002 [sym_kNil];
   ACTIONS 10000 [sym_kNot]; ACTIONS 10020 [sym_kProcedure]; ACTIONS 10386 [sym_kRaise];
   ACTIONS 10388 [sym_kRepeat]; ACTIONS 10032 [sym_kString]; ACTIONS 10390 [sym_kTry];
   ACTIONS 10036 [sym_kVar]; ACTIONS 10392 [sym_kWhile]; ACTIONS 10394 [sym_kWith]].

(** State 1254. *)
Definition ts_parse_table_1254 : parse_row :=
  [ACTIONS 10634 [anon_sym_SEMI; anon_sym_COMMA; anon_sym_LBRACK];
   ACTIONS 10636 [anon_sym_LPAREN]; ACTIONS 10634 [aux_sym__literalString_token1;
   anon_sym_POUND]; ACTIONS 10636 [aux_sym__literalInt_token1];
   ACTIONS 10634 [aux_sym__literalInt_token2; aux_sym__literalInt_token3];
   ACTIONS 10636 [aux_sym__literalFloat_token1]; ACTIONS 10634 [aux_sym_ppUsesBlock_token1;
   aux_sym_ppUsesBlock_token2; aux_sym_ppUsesBlock_token3]; ACTIONS 10636 [sym_kAdd; sym_kSub];
   ACTIONS 10634 [sym_kAt; sym_kTrue; sym_kFalse]; ACTIONS 3 [sym__space];
   ACTIONS 5 [sym_ppDirective]; ACTIONS 3 [sym_comment]; ACTIONS 10634 [sym_ppFragmentExpr;
   sym__literalStringMultiline; sym_identifier; sym_kDefault; sym_kNodefault; sym_kDispId;
   sym_kGeneric; sym_kSpecialize; sym_kOperator; sym_kPublic; sym_kStatic; sym_kVirtual;
   sym_kAbstract; sym_kDynamic; sym_kOverride; sym_kOverload; sym_kReintroduce; sym_kStdcall;
   sym_kCdecl; sym_kCppdecl; sym_kPascal; sym_kRegister; sym_kMwpascal; sym_kMessage;
   sym_kDeprecated; sym_kExperimental; sym_kPlatform; sym_kUnimplemented; sym_kCvar; sym_kExport;
   sym_kFar; sym_kNear; sym_kSafecall; sym_kAssembler; sym_kNostackframe; sym_kInterrupt;
   sym_kNoreturn; sym_kIocheck; sym_kLocal; sym_kHardfloat; sym_kSoftfloat; sym_kMs_abi_default;
   sym_kMs_abi_cdecl; sym_kSaveregisters; sym_kSysv_abi_default; sym_kSysv_abi_cdecl;
   sym_kVectorcall; sym_kVarargs; sym_kWinapi; sym_kAlias; sym_kAsm; sym_kBegin; sym_kCase;
   sym_kClass; sym_kConst; sym_kConstructor; sym_kDestructor; sym_kExports; sym_kFor;
   sym_kFunction; sym_kGoto; sym_kIf; sym_kInherited; sym_kInline; sym_kLabel; sym_kNil;
   sym_kNot; sym_kProcedure; sym_kProperty; sym_kRaise; sym_kRepeat; sym_kResourcestring;
   sym_kString; sym_kThreadvar; sym_kTry; sym_kType; sym_kUses; sym_kVar; sym_kWhile; sym_kWith]].

(** State 1255. *)
Definition ts_parse_table_1255 : parse_row :=
  [ACTIONS 10590 [anon_sym_SEMI; anon_sym_COMMA; anon_sym_LBRACK];
   ACTIONS 10592 [anon_sym_LPAREN]; ACTIONS 10590 [aux_sym__literalString_token1;
   anon_sym_POUND]; ACTIONS 10592 [aux_sym__literalInt_token1];
   ACTIONS 10590 [aux_sym__literalInt_token2; aux_sym__literalInt_token3];
   ACTIONS 10592 [aux_sym__literalFloat_token1]; ACTIONS 10590 [aux_sym_ppUsesBlock_token1;
   aux_sym_ppUsesBlock_token2; aux_sym_ppUsesBlock_token3]; ACTIONS 10592 [sym_kAdd; sym_kSub];
   ACTIONS 10590 [sym_kAt; sym_kTrue; sym_kFalse]; ACTIONS 3 [sym__space];
   ACTIONS 5 [sym_ppDirective]; ACTIONS 3 [sym_comment]; ACTIONS 10590 [sym_ppFragmentExpr;
   sym__literalStringMultiline; sym_identifier; sym_kDefault; sym_kNodefault; sym_kDispId;
   sym_kGeneric; sym_kSpecialize; sym_kOperator; sym_kPublic; sym_kStatic; sym_kVirtual;
   sym_kAbstract; sym_kDynamic; sym_kOverride; sym_kOverload; sym_kReintroduce; sym_kStdcall;
   sym_kCdecl; sym_kCppdecl; sym_kPascal; sym_kRegister; sym_kMwpascal; sym_kMessage;
   sym_kDeprecated; sym_kExperimental; sym_kPlatform; sym_kUnimplemented; sym_kCvar; sym_kExport;
   sym_kFar; sym_kNear; sym_kSafecall; sym_kAssembler; sym_kNostackframe; sym_kInterrupt;
   sym_kNoreturn; sym_kIocheck; sym_kLocal; sym_kHardfloat; sym_kSoftfloat; sym_kMs_abi_default;
   sym_kMs_abi_cdecl; sym_kSaveregisters; sym_kSysv_abi_default; sym_kSysv_abi_cdecl;
   sym_kVectorcall; sym_kVarargs; sym_kWinapi; sym_kAlias; sym_kAsm; sym_kBegin; sym_kCase;
   sym_kClass; sym_kConst; sym_kConstructor; sym_kDestructor; sym_kExports; sym_kFor;
   sym_kFunction; sym_kGoto; sym_kIf; sym_kInherited; sym_kInline; sym_kLabel; sym_kNil;
   sym_kNot; sym_kProcedure; sym_kProperty; sym_kRaise; sym_kRepeat; sym_kResourcestring;
   sym_kString; sym_kThreadvar; sym_kTry; sym_kType; sym_kUses; sym_kVar; sym_kWhile; sym_kWith]].

(** State 1256. *)
Definition ts_parse_table_1256 : parse_row :=
  [ACTIONS 10784 [anon_sym_SEMI; anon_sym_COMMA; anon_sym_LBRACK];
   ACTIONS 10786 [anon_sym_LPAREN]; ACTIONS 10784 [aux_sym__literalString_token1;
   anon_sym_POUND]; ACTIONS 10786 [aux_sym__literalInt_token1];
   ACTIONS 10784 [aux_sym__literalInt_token2; aux_sym__literalInt_token3];
   ACTIONS 10786 [aux_sym__literalFloat_token1]; ACTIONS 10784 [aux_sym_ppUsesBlock_token1;
   aux_sym_ppUsesBlock_token2; aux_sym_ppUsesBlock_token3]; ACTIONS 10786 [sym_kAdd; sym_kSub];
   ACTIONS 10784 [sym_kAt; sym_kTrue; sym_kFalse]; ACTIONS 3 [sym__space];
   ACTIONS 5 [sym_ppDirective]; ACTIONS 3 [sym_comment]; ACTIONS 10784 [sym_ppFragmentExpr;
   sym__literalStringMultiline; sym_identifier; sym_kDefault; sym_kNodefault; sym_kDispId;
   sym_kGeneric; sym_kSpecialize; sym_kOperator; sym_kPublic; sym_kStatic; sym_kVirtual;
   sym_kAbstract; sym_kDynamic; sym_kOverride; sym_kOverload; sym_kReintroduce; sym_kStdcall;
   sym_kCdecl; sym_kCppdecl; sym_kPascal; sym_kRegister; sym_kMwpascal; sym_kMessage;
   sym_kDeprecated; sym_kExperimental; sym_kPlatform; sym_kUnimplemented; sym_kCvar; sym_kExport;
   sym_kFar; sym_kNear; sym_kSafecall; sym_kAssembler; sym_kNostackframe; sym_kInterrupt;
   sym_kNoreturn; sym_kIocheck; sym_kLocal; sym_kHardfloat; sym_kSoftfloat; sym_kMs_abi_default;
   sym_kMs_abi_cdecl; sym_kSaveregisters; sym_kSysv_abi_default; sym_kSysv_abi_cdecl;
   sym_kVectorcall; sym_kVarargs; sym_kWinapi; sym_kAlias; sym_kAsm; sym_kBegin; sym_kCase;
   sym_kClass; sym_kConst; sym_kConstructor; sym_kDestructor; sym_kElse; sym_kExports; sym_kFor;
   sym_kFunction; sym_kGoto; sym_kIf; sym_kInherited; sym_kLabel; sym_kNil; sym_kNot;
   sym_kProcedure; sym_kProperty; sym_kRaise; sym_kRepeat; sym_kResourcestring; sym_kString;
   sym_kThreadvar; sym_kTry; sym_kType; sym_kUses; sym_kVar; sym_kWhile; sym_kWith]].

(** State 1257. *)
Definition ts_parse_table_1257 : parse_row :=
  [STATE 6214 [sym_if]; STATE 6202 [sym_ifElse; sym_while; sym_repeat; sym_for; sym_foreach;
   sym_try; sym_case; sym_block; sym_asm; sym_with; sym_raise; sym_statement; sym_goto;
   sym__statement]; STATE 15037 [sym_ifTr; sym_ifElseTr; sym_whileTr; sym_repeatTr; sym_forTr;
   sym_foreachTr; sym_tryTr; sym_caseTr]; STATE 15738 [sym_blockTr]; STATE 15037 [sym_asmTr;
   sym_withTr; sym_raiseTr; sym_statementTr; sym_gotoTr; sym__statementTr];
   STATE 13660 [sym_assignment]; STATE 11905 [sym_varAssignDef]; STATE 13660 [sym_varDef;
   sym_constDef]; STATE 1271 [sym_label]; STATE 7979 [sym__expr; sym_exprConditional];
   STATE 7363 [sym__ref; sym_lambda; sym_inherited; sym_exprDot; sym_exprDeref; sym_exprAs;
   sym_exprTpl; sym_exprSubscript; sym_exprCall]; STATE 7979 [sym_exprBinary; sym_exprUnary];
   STATE 7363 [sym_exprParens; sym_exprBrackets; sym__literal; sym_literalString];
   STATE 6967 [sym__literalString; sym_literalChar]; STATE 7363 [sym_literalNumber];
   STATE 7660 [sym__literalInt; sym__literalFloat];
   STATE 1271 [aux_sym_labeledStatement_repeat1]; STATE 6967 [aux_sym_literalString_repeat1];
   ACTIONS 10788 [anon_sym_SEMI]; ACTIONS 9986 [anon_sym_LBRACK]; ACTIONS 9988 [anon_sym_LPAREN];
   ACTIONS 9990 [aux_sym__literalString_token1]; ACTIONS 9992 [anon_sym_POUND];
   ACTIONS 9994 [aux_sym__literalInt_token1]; ACTIONS 9996 [aux_sym__literalInt_token2;
   aux_sym__literalInt_token3]; ACTIONS 9994 [aux_sym__literalFloat_token1];
   ACTIONS 9998 [sym_kAdd; sym_kSub]; ACTIONS 10000 [sym_kAt]; ACTIONS 10002 [sym_kTrue;
   sym_kFalse]; ACTIONS 10004 [sym_labelNumber]; ACTIONS 3 [sym__space];
   ACTIONS 5 [sym_ppDirective]; ACTIONS 3 [sym_comment]; ACTIONS 10002 [sym_ppFragmentExpr];
   ACTIONS 9990 [sym__literalStringMultiline]; ACTIONS 10006 [sym_identifier];
   ACTIONS 10008 [sym_kSpecialize]; ACTIONS 10200 [sym_kAsm]; ACTIONS 10202 [sym_kBegin];
   ACTIONS 10204 [sym_kCase]; ACTIONS 10016 [sym_kConst]; ACTIONS 4301 [sym_kElse];
   ACTIONS 10208 [sym_kFor]; ACTIONS 10020 [sym_kFunction]; ACTIONS 10210 [sym_kGoto];
   ACTIONS 10212 [sym_kIf]; ACTIONS 10026 [sym_kInherited]; ACTIONS 10002 [sym_kNil];
   ACTIONS 10000 [sym_kNot]; ACTIONS 10020 [sym_kProcedure]; ACTIONS 10214 [sym_kRaise];
   ACTIONS 10216 [sym_kRepeat]; ACTIONS 10032 [sym_kString]; ACTIONS 10218 [sym_kTry];
   ACTIONS 10036 [sym_kVar]; ACTIONS 10220 [sym_kWhile]; ACTIONS 10222 [sym_kWith]].

(** State 1258. *)
Definition ts_parse_table_1258 : parse_row :=
  [ACTIONS 10638 [anon_sym_SEMI; anon_sym_COMMA; anon_sym_LBRACK];
   ACTIONS 10640 [anon_sym_LPAREN]; ACTIONS 10638 [aux_sym__literalString_token1;
   anon_sym_POUND]; ACTIONS 10640 [aux_sym__literalInt_token1];
   ACTIONS 10638 [aux_sym__literalInt_token2; aux_sym__literalInt_token3];
   ACTIONS 10640 [aux_sym__literalFloat_token1]; ACTIONS 10638 [aux_sym_ppUsesBlock_token1;
   aux_sym_ppUsesBlock_token2; aux_sym_ppUsesBlock_token3]; ACTIONS 10640 [sym_kAdd; sym_kSub];
   ACTIONS 10638 [sym_kAt; sym_kTrue; sym_kFalse]; ACTIONS 3 [sym__space];
   ACTIONS 5 [sym_ppDirective]; ACTIONS 3 [sym_comment]; ACTIONS 10638 [sym_ppFragmentExpr;
   sym__literalStringMultiline; sym_identifier; sym_kDefault; sym_kNodefault; sym_kDispId;
   sym_kGeneric; sym_kSpecialize; sym_kOperator; sym_kPublic; sym_kStatic; sym_kVirtual;
   sym_kAbstract; sym_kDynamic; sym_kOverride; sym_kOverload; sym_kReintroduce; sym_kStdcall;
   sym_kCdecl; sym_kCppdecl; sym_kPascal; sym_kRegister; sym_kMwpascal; sym_kMessage;
   sym_kDeprecated; sym_kExperimental; sym_kPlatform; sym_kUnimplemented; sym_kCvar; sym_kExport;
   sym_kFar; sym_kNear; sym_kSafecall; sym_kAssembler; sym_kNostackframe; sym_kInterrupt;
   sym_kNoreturn; sym_kIocheck; sym_kLocal; sym_kHardfloat; sym_kSoftfloat; sym_kMs_abi_default;
   sym_kMs_abi_cdecl; sym_kSaveregisters; sym_kSysv_abi_default; sym_kSysv_abi_cdecl;
   sym_kVectorcall; sym_kVarargs; sym_kWinapi; sym_kAlias; sym_kAsm; sym_kBegin; sym_kCase;
   sym_kClass; sym_kConst; sym_kConstructor; sym_kDestructor; sym_kExports; sym_kFor;
   sym_kFunction; sym_kGoto; sym_kIf; sym_kInherited; sym_kInline; sym_kLabel; sym_kNil;
   sym_kNot; sym_kProcedure; sym_kProperty; sym_kRaise; sym_kRepeat; sym_kResourcestring;
   sym_kString; sym_kThreadvar; sym_kTry; sym_kType; sym_kUses; sym_kVar; sym_kWhile; sym_kWith]].

(** State 1259. *)
Definition ts_parse_table_1259 : parse_row :=
  [ACTIONS 10594 [anon_sym_SEMI; anon_sym_COMMA; anon_sym_LBRACK];
   ACTIONS 10596 [anon_sym_LPAREN]; ACTIONS 10594 [aux_sym__literalString_token1;
   anon_sym_POUND]; ACTIONS 10596 [aux_sym__literalInt_token1];
   ACTIONS 10594 [aux_sym__literalInt_token2; aux_sym__literalInt_token3];
   ACTIONS 10596 [aux_sym__literalFloat_token1]; ACTIONS 10594 [aux_sym_ppUsesBlock_token1;
   aux_sym_ppUsesBlock_token2; aux_sym_ppUsesBlock_token3]; ACTIONS 10596 [sym_kAdd; sym_kSub];
   ACTIONS 10594 [sym_kAt; sym_kTrue; sym_kFalse]; ACTIONS 3 [sym__space];
   ACTIONS 5 [sym_ppDirective]; ACTIONS 3 [sym_comment]; ACTIONS 10594 [sym_ppFragmentExpr;
   sym__literalStringMultiline; sym_identifier; sym_kDefault; sym_kNodefault; sym_kDispId;
   sym_kGeneric; sym_kSpecialize; sym_kOperator; sym_kPublic; sym_kStatic; sym_kVirtual;
   sym_kAbstract; sym_kDynamic; sym_kOverride; sym_kOverload; sym_kReintroduce; sym_kStdcall;
   sym_kCdecl; sym_kCppdecl; sym_kPascal; sym_kRegister; sym_kMwpascal; sym_kMessage;
   sym_kDeprecated; sym_kExperimental; sym_kPlatform; sym_kUnimplemented; sym_kCvar; sym_kExport;
   sym_kFar; sym_kNear; sym_kSafecall; sym_kAssembler; sym_kNostackframe; sym_kInterrupt;
   sym_kNoreturn; sym_kIocheck; sym_kLocal; sym_kHardfloat; sym_kSoftfloat; sym_kMs_abi_default;
   sym_kMs_abi_cdecl; sym_kSaveregisters; sym_kSysv_abi_default; sym_kSysv_abi_cdecl;
   sym_kVectorcall; sym_kVarargs; sym_kWinapi; sym_kAlias; sym_kAsm; sym_kBegin; sym_kCase;
   sym_kClass; sym_kConst; sym_kConstructor; sym_kDestructor; sym_kExports; sym_kFor;
   sym_kFunction; sym_kGoto; sym_kIf; sym_kInherited; sym_kInline; sym_kLabel; sym_kNil;
   sym_kNot; sym_kProcedure; sym_kProperty; sym_kRaise; sym_kRepeat; sym_kResourcestring;
   sym_kString; sym_kThreadvar; sym_kTry; sym_kType; sym_kUses; sym_kVar; sym_kWhile; sym_kWith]].

(** State 1260. *)
Definition ts_parse_table_1260 : parse_row :=
  [STATE 6273 [sym_if]; STATE 6181 [sym_ifElse; sym_while; sym_repeat; sym_for; sym_foreach;
   sym_try; sym_case; sym_block; sym_asm; sym_with; sym_raise; sym_statement; sym_goto;
   sym__statement]; STATE 15257 [sym_ifTr; sym_ifElseTr; sym_whileTr; sym_repeatTr; sym_forTr;
   sym_foreachTr; sym_tryTr; sym_caseTr]; STATE 14967 [sym_blockTr]; STATE 15257 [sym_asmTr;
   sym_withTr; sym_raiseTr; sym_statementTr; sym_gotoTr; sym__statementTr];
   STATE 13420 [sym_assignment]; STATE 11684 [sym_varAssignDef]; STATE 13420 [sym_varDef;
   sym_constDef]; STATE 1262 [sym_label]; STATE 8128 [sym__expr; sym_exprConditional];
   STATE 7533 [sym__ref; sym_lambda; sym_inherited; sym_exprDot; sym_exprDeref; sym_exprAs;
   sym_exprTpl; sym_exprSubscript; sym_exprCall]; STATE 8128 [sym_exprBinary; sym_exprUnary];
   STATE 7533 [sym_exprParens; sym_exprBrackets; sym__literal; sym_literalString];
   STATE 6915 [sym__literalString; sym_literalChar]; STATE 7533 [sym_literalNumber];
   STATE 7570 [sym__literalInt; sym__literalFloat];
   STATE 1262 [aux_sym_labeledStatement_repeat1]; STATE 6915 [aux_sym_literalString_repeat1];
   ACTIONS 10520 [anon_sym_SEMI]; ACTIONS 927 [anon_sym_LBRACK]; ACTIONS 929 [anon_sym_LPAREN];
   ACTIONS 931 [aux_sym__literalString_token1]; ACTIONS 933 [anon_sym_POUND];
   ACTIONS 935 [aux_sym__literalInt_token1]; ACTIONS 937 [aux_sym__literalInt_token2;
   aux_sym__literalInt_token3]; ACTIONS 935 [aux_sym__literalFloat_token1];
   ACTIONS 939 [sym_kAdd; sym_kSub]; ACTIONS 941 [sym_kAt]; ACTIONS 943 [sym_kTrue; sym_kFalse];
   ACTIONS 10188 [sym_labelNumber]; ACTIONS 3 [sym__space]; ACTIONS 5 [sym_ppDirective];
   ACTIONS 3 [sym_comment]; ACTIONS 943 [sym_ppFragmentExpr];
   ACTIONS 931 [sym__literalStringMultiline]; ACTIONS 10190 [sym_identifier];
   ACTIONS 949 [sym_kSpecialize]; ACTIONS 951 [sym_kAsm]; ACTIONS 953 [sym_kBegin];
   ACTIONS 955 [sym_kCase]; ACTIONS 957 [sym_kConst]; ACTIONS 959 [sym_kFor];
   ACTIONS 961 [sym_kFunction]; ACTIONS 963 [sym_kGoto]; ACTIONS 965 [sym_kIf];
   ACTIONS 967 [sym_kInherited]; ACTIONS 943 [sym_kNil]; ACTIONS 941 [sym_kNot];
   ACTIONS 961 [sym_kProcedure]; ACTIONS 969 [sym_kRaise]; ACTIONS 971 [sym_kRepeat];
   ACTIONS 973 [sym_kString]; ACTIONS 975 [sym_kTry]; ACTIONS 4301 [sym_kUntil];
   ACTIONS 979 [sym_kVar]; ACTIONS 981 [sym_kWhile]; ACTIONS 983 [sym_kWith]].

(** State 1261. *)
Definition ts_parse_table_1261 : parse_row :=
  [ACTIONS 10594 [anon_sym_SEMI; anon_sym_COMMA; anon_sym_LBRACK];
   ACTIONS 10596 [anon_sym_LPAREN]; ACTIONS 10594 [aux_sym__literalString_token1;
   anon_sym_POUND]; ACTIONS 10596 [aux_sym__literalInt_token1];
   ACTIONS 10594 [aux_sym__literalInt_token2; aux_sym__literalInt_token3];
   ACTIONS 10596 [aux_sym__literalFloat_token1]; ACTIONS 10594 [aux_sym_ppUsesBlock_token1;
   aux_sym_ppUsesBlock_token2; aux_sym_ppUsesBlock_token3]; ACTIONS 10596 [sym_kAdd; sym_kSub];
   ACTIONS 10594 [sym_kAt; sym_kTrue; sym_kFalse]; ACTIONS 3 [sym__space];
   ACTIONS 5 [sym_ppDirective]; ACTIONS 3 [sym_comment]; ACTIONS 10594 [sym_ppFragmentExpr;
   sym__literalStringMultiline; sym_identifier; sym_kDefault; sym_kNodefault; sym_kDispId;
   sym_kGeneric; sym_kSpecialize; sym_kOperator; sym_kPublic; sym_kStatic; sym_kVirtual;
   sym_kAbstract; sym_kDynamic; sym_kOverride; sym_kOverload; sym_kReintroduce; sym_kStdcall;
   sym_kCdecl; sym_kCppdecl; sym_kPascal; sym_kRegister; sym_kMwpascal; sym_kMessage;
   sym_kDeprecated; sym_kExperimental; sym_kPlatform; sym_kUnimplemented; sym_kCvar; sym_kExport;
   sym_kFar; sym_kNear; sym_kSafecall; sym_kAssembler; sym_kNostackframe; sym_kInterrupt;
   sym_kNoreturn; sym_kIocheck; sym_kLocal; sym_kHardfloat; sym_kSoftfloat; sym_kMs_abi_default;
   sym_kMs_abi_cdecl; sym_kSaveregisters; sym_kSysv_abi_default; sym_kSysv_abi_cdecl;
   sym_kVectorcall; sym_kVarargs; sym_kWinapi; sym_kAlias; sym_kAsm; sym_kBegin; sym_kCase;
   sym_kClass; sym_kConst; sym_kConstructor; sym_kDestructor; sym_kExports; sym_kFor;
   sym_kFunction; sym_kGoto; sym_kIf; sym_kInherited; sym_kInline; sym_kLabel; sym_kNil;
   sym_kNot; sym_kProcedure; sym_kProperty; sym_kRaise; sym_kRepeat; sym_kResourcestring;
   sym_kString; sym_kThreadvar; sym_kTry; sym_kType; sym_kUses; sym_kVar; sym_kWhile; sym_kWith]].

(** State 1262. *)
Definition ts_parse_table_1262 : parse_row :=
  [STATE 6273 [sym_if]; STATE 6250 [sym_ifElse; sym_while; sym_repeat; sym_for; sym_foreach;
   sym_try; sym_case; sym_block; sym_asm; sym_with; sym_raise; sym_statement; sym_goto;
   sym__statement]; STATE 14139 [sym_ifTr; sym_ifElseTr; sym_whileTr; sym_repeatTr; sym_forTr;
   sym_foreachTr; sym_tryTr; sym_caseTr]; STATE 14967 [sym_blockTr]; STATE 14139 [sym_asmTr;
   sym_withTr; sym_raiseTr; sym_statementTr; sym_gotoTr; sym__statementTr];
   STATE 13420 [sym_assignment]; STATE 11684 [sym_varAssignDef]; STATE 13420 [sym_varDef;
   sym_constDef]; STATE 6257 [sym_label]; STATE 8128 [sym__expr; sym_exprConditional];
   STATE 7533 [sym__ref; sym_lambda; sym_inherited; sym_exprDot; sym_exprDeref; sym_exprAs;
   sym_exprTpl; sym_exprSubscript; sym_exprCall]; STATE 8128 [sym_exprBinary; sym_exprUnary];
   STATE 7533 [sym_exprParens; sym_exprBrackets; sym__literal; sym_literalString];
   STATE 6915 [sym__literalString; sym_literalChar]; STATE 7533 [sym_literalNumber];
   STATE 7570 [sym__literalInt; sym__literalFloat];
   STATE 6257 [aux_sym_labeledStatement_repeat1]; STATE 6915 [aux_sym_literalString_repeat1];
   ACTIONS 10530 [anon_sym_SEMI]; ACTIONS 927 [anon_sym_LBRACK]; ACTIONS 929 [anon_sym_LPAREN];
   ACTIONS 931 [aux_sym__literalString_token1]; ACTIONS 933 [anon_sym_POUND];
   ACTIONS 935 [aux_sym__literalInt_token1]; ACTIONS 937 [aux_sym__literalInt_token2;
   aux_sym__literalInt_token3]; ACTIONS 935 [aux_sym__literalFloat_token1];
   ACTIONS 939 [sym_kAdd; sym_kSub]; ACTIONS 941 [sym_kAt]; ACTIONS 943 [sym_kTrue; sym_kFalse];
   ACTIONS 10188 [sym_labelNumber]; ACTIONS 3 [sym__space]; ACTIONS 5 [sym_ppDirective];
   ACTIONS 3 [sym_comment]; ACTIONS 943 [sym_ppFragmentExpr];
   ACTIONS 931 [sym__literalStringMultiline]; ACTIONS 10190 [sym_identifier];
   ACTIONS 949 [sym_kSpecialize]; ACTIONS 951 [sym_kAsm]; ACTIONS 953 [sym_kBegin];
   ACTIONS 955 [sym_kCase]; ACTIONS 957 [sym_kConst]; ACTIONS 959 [sym_kFor];
   ACTIONS 961 [sym_kFunction]; ACTIONS 963 [sym_kGoto]; ACTIONS 965 [sym_kIf];
   ACTIONS 967 [sym_kInherited]; ACTIONS 943 [sym_kNil]; ACTIONS 941 [sym_kNot];
   ACTIONS 961 [sym_kProcedure]; ACTIONS 969 [sym_kRaise]; ACTIONS 971 [sym_kRepeat];
   ACTIONS 973 [sym_kString]; ACTIONS 975 [sym_kTry]; ACTIONS 4439 [sym_kUntil];
   ACTIONS 979 [sym_kVar]; ACTIONS 981 [sym_kWhile]; ACTIONS 983 [sym_kWith]].

(** State 1263. *)
Definition ts_parse_table_1263 : parse_row :=
  [STATE 13286 [sym_if]; STATE 13816 [sym_ifElse; sym_while; sym_repeat; sym_for; sym_foreach;
   sym_try; sym_case; sym_block; sym_asm; sym_with; sym_raise; sym_statement; sym_goto;
   sym__statement]; STATE 14724 [sym_ifTr; sym_ifElseTr; sym_whileTr; sym_repeatTr; sym_forTr;
   sym_foreachTr; sym_tryTr; sym_caseTr]; STATE 15738 [sym_blockTr]; STATE 14724 [sym_asmTr;
   sym_withTr; sym_raiseTr; sym_statementTr; sym_gotoTr; sym__statementTr];
   STATE 13914 [sym_assignment]; STATE 11905 [sym_varAssignDef]; STATE 13914 [sym_varDef;
   sym_constDef]; STATE 6187 [sym_label]; STATE 8001 [sym__expr; sym_exprConditional];
   STATE 7363 [sym__ref; sym_lambda; sym_inherited; sym_exprDot; sym_exprDeref; sym_exprAs;
   sym_exprTpl; sym_exprSubscript; sym_exprCall]; STATE 8001 [sym_exprBinary; sym_exprUnary];
   STATE 7363 [sym_exprParens; sym_exprBrackets; sym__literal; sym_literalString];
   STATE 6967 [sym__literalString; sym_literalChar]; STATE 7363 [sym_literalNumber];
   STATE 7660 [sym__literalInt; sym__literalFloat];
   STATE 6187 [aux_sym_labeledStatement_repeat1]; STATE 6967 [aux_sym_literalString_repeat1];
   ACTIONS 10790 [anon_sym_SEMI]; ACTIONS 9986 [anon_sym_LBRACK]; ACTIONS 9988 [anon_sym_LPAREN];
   ACTIONS 9990 [aux_sym__literalString_token1]; ACTIONS 9992 [anon_sym_POUND];
   ACTIONS 9994 [aux_sym__literalInt_token1]; ACTIONS 9996 [aux_sym__literalInt_token2;
   aux_sym__literalInt_token3]; ACTIONS 9994 [aux_sym__literalFloat_token1];
   ACTIONS 9998 [sym_kAdd; sym_kSub]; ACTIONS 10000 [sym_kAt]; ACTIONS 10002 [sym_kTrue;
   sym_kFalse]; ACTIONS 10004 [sym_labelNumber]; ACTIONS 3 [sym__space];
   ACTIONS 5 [sym_ppDirective]; ACTIONS 3 [sym_comment]; ACTIONS 10002 [sym_ppFragmentExpr];
   ACTIONS 9990 [sym__literalStringMultiline]; ACTIONS 10006 [sym_identifier];
   ACTIONS 10008 [sym_kSpecialize]; ACTIONS 10374 [sym_kAsm]; ACTIONS 10376 [sym_kBegin];
   ACTIONS 10378 [sym_kCase]; ACTIONS 10016 [sym_kConst]; ACTIONS 4439 [sym_kElse];
   ACTIONS 10380 [sym_kFor]; ACTIONS 10020 [sym_kFunction]; ACTIONS 10382 [sym_kGoto];
   ACTIONS 10384 [sym_kIf]; ACTIONS 10026 [sym_kInherited]; ACTIONS 10002 [sym_kNil];
   ACTIONS 10000 [sym_kNot]; ACTIONS 10020 [sym_kProcedure]; ACTIONS 10386 [sym_kRaise];
   ACTIONS 10388 [sym_kRepeat]; ACTIONS 10032 [sym_kString]; ACTIONS 10390 [sym_kTry];
   ACTIONS 10036 [sym_kVar]; ACTIONS 10392 [sym_kWhile]; ACTIONS 10394 [sym_kWith]].

(** State 1264. *)
Definition ts_parse_table_1264 : parse_row :=
  [ACTIONS 10792 [anon_sym_SEMI; anon_sym_COMMA; anon_sym_LBRACK];
   ACTIONS 10794 [anon_sym_LPAREN]; ACTIONS 10792 [aux_sym__literalString_token1;
   anon_sym_POUND]; ACTIONS 10794 [aux_sym__literalInt_token1];
   ACTIONS 10792 [aux_sym__literalInt_token2; aux_sym__literalInt_token3];
   ACTIONS 10794 [aux_sym__literalFloat_token1]; ACTIONS 10792 [aux_sym_ppUsesBlock_token1;
   aux_sym_ppUsesBlock_token2; aux_sym_ppUsesBlock_token3]; ACTIONS 10794 [sym_kAdd; sym_kSub];
   ACTIONS 10792 [sym_kAt; sym_kTrue; sym_kFalse]; ACTIONS 3 [sym__space];
   ACTIONS 5 [sym_ppDirective]; ACTIONS 3 [sym_comment]; ACTIONS 10792 [sym_ppFragmentExpr;
   sym__literalStringMultiline; sym_identifier; sym_kDefault; sym_kNodefault; sym_kDispId;
   sym_kGeneric; sym_kSpecialize; sym_kOperator; sym_kPublic; sym_kStatic; sym_kVirtual;
   sym_kAbstract; sym_kDynamic; sym_kOverride; sym_kOverload; sym_kReintroduce; sym_kStdcall;
   sym_kCdecl; sym_kCppdecl; sym_kPascal; sym_kRegister; sym_kMwpascal; sym_kMessage;
   sym_kDeprecated; sym_kExperimental; sym_kPlatform; sym_kUnimplemented; sym_kCvar; sym_kExport;
   sym_kFar; sym_kNear; sym_kSafecall; sym_kAssembler; sym_kNostackframe; sym_kInterrupt;
   sym_kNoreturn; sym_kIocheck; sym_kLocal; sym_kHardfloat; sym_kSoftfloat; sym_kMs_abi_default;
   sym_kMs_abi_cdecl; sym_kSaveregisters; sym_kSysv_abi_default; sym_kSysv_abi_cdecl;
   sym_kVectorcall; sym_kVarargs; sym_kWinapi; sym_kAlias; sym_kAsm; sym_kBegin; sym_kCase;
   sym_kClass; sym_kConst; sym_kConstructor; sym_kDestructor; sym_kElse; sym_kExports; sym_kFor;
   sym_kFunction; sym_kGoto; sym_kIf; sym_kInherited; sym_kLabel; sym_kNil; sym_kNot;
   sym_kProcedure; sym_kProperty; sym_kRaise; sym_kRepeat; sym_kResourcestring; sym_kString;
   sym_kThreadvar; sym_kTry; sym_kType; sym_kUses; sym_kVar; sym_kWhile; sym_kWith]].

(** State 1265. *)
Definition ts_parse_table_1265 : parse_row :=
  [ACTIONS 10614 [anon_sym_SEMI; anon_sym_COMMA; anon_sym_LBRACK];
   ACTIONS 10616 [anon_sym_LPAREN]; ACTIONS 10614 [aux_sym__literalString_token1;
   anon_sym_POUND]; ACTIONS 10616 [aux_sym__literalInt_token1];
   ACTIONS 10614 [aux_sym__literalInt_token2; aux_sym__literalInt_token3];
   ACTIONS 10616 [aux_sym__literalFloat_token1]; ACTIONS 10614 [aux_sym_ppUsesBlock_token1;
   aux_sym_ppUsesBlock_token2; aux_sym_ppUsesBlock_token3]; ACTIONS 10616 [sym_kAdd; sym_kSub];
   ACTIONS 10614 [sym_kAt; sym_kTrue; sym_kFalse]; ACTIONS 3 [sym__space];
   ACTIONS 5 [sym_ppDirective]; ACTIONS 3 [sym_comment]; ACTIONS 10614 [sym_ppFragmentExpr;
   sym__literalStringMultiline; sym_identifier; sym_kDefault; sym_kNodefault; sym_kDispId;
   sym_kGeneric; sym_kSpecialize; sym_kOperator; sym_kPublic; sym_kStatic; sym_kVirtual;
   sym_kAbstract; sym_kDynamic; sym_kOverride; sym_kOverload; sym_kReintroduce; sym_kStdcall;
   sym_kCdecl; sym_kCppdecl; sym_kPascal; sym_kRegister; sym_kMwpascal; sym_kMessage;
   sym_kDeprecated; sym_kExperimental; sym_kPlatform; sym_kUnimplemented; sym_kCvar; sym_kExport;
   sym_kFar; sym_kNear; sym_kSafecall; sym_kAssembler; sym_kNostackframe; sym_kInterrupt;
   sym_kNoreturn; sym_kIocheck; sym_kLocal; sym_kHardfloat; sym_kSoftfloat; sym_kMs_abi_default;
   sym_kMs_abi_cdecl; sym_kSaveregisters; sym_kSysv_abi_default; sym_kSysv_abi_cdecl;
   sym_kVectorcall; sym_kVarargs; sym_kWinapi; sym_kAlias; sym_kAsm; sym_kBegin; sym_kCase;
   sym_kClass; sym_kConst; sym_kConstructor; sym_kDestructor; sym_kExports; sym_kFor;
   sym_kFunction; sym_kGoto; sym_kIf; sym_kInherited; sym_kInline; sym_kLabel; sym_kNil;
   sym_kNot; sym_kProcedure; sym_kProperty; sym_kRaise; sym_kRepeat; sym_kResourcestring;
   sym_kString; sym_kThreadvar; sym_kTry; sym_kType; sym_kUses; sym_kVar; sym_kWhile; sym_kWith]].

(** State 1266. *)
Definition ts_parse_table_1266 : parse_row :=
  [ACTIONS 10796 [anon_sym_SEMI; anon_sym_COMMA; anon_sym_LBRACK];
   ACTIONS 10798 [anon_sym_LPAREN]; ACTIONS 10796 [aux_sym__literalString_token1;
   anon_sym_POUND]; ACTIONS 10798 [aux_sym__literalInt_token1];
   ACTIONS 10796 [aux_sym__literalInt_token2; aux_sym__literalInt_token3];
   ACTIONS 10798 [aux_sym__literalFloat_token1]; ACTIONS 10796 [aux_sym_ppUsesBlock_token1;
   aux_sym_ppUsesBlock_token2; aux_sym_ppUsesBlock_token3]; ACTIONS 10798 [sym_kAdd; sym_kSub];
   ACTIONS 10796 [sym_kAt; sym_kTrue; sym_kFalse]; ACTIONS 3 [sym__space];
   ACTIONS 5 [sym_ppDirective]; ACTIONS 3 [sym_comment]; ACTIONS 10796 [sym_ppFragmentExpr;
   sym__literalStringMultiline; sym_identifier; sym_kDefault; sym_kNodefault; sym_kDispId;
   sym_kGeneric; sym_kSpecialize; sym_kOperator; sym_kPublic; sym_kStatic; sym_kVirtual;
   sym_kAbstract; sym_kDynamic; sym_kOverride; sym_kOverload; sym_kReintroduce; sym_kStdcall;
   sym_kCdecl; sym_kCppdecl; sym_kPascal; sym_kRegister; sym_kMwpascal; sym_kMessage;
   sym_kDeprecated; sym_kExperimental; sym_kPlatform; sym_kUnimplemented; sym_kCvar; sym_kExport;
   sym_kFar; sym_kNear; sym_kSafecall; sym_kAssembler; sym_kNostackframe; sym_kInterrupt;
   sym_kNoreturn; sym_kIocheck; sym_kLocal; sym_kHardfloat; sym_kSoftfloat; sym_kMs_abi_default;
   sym_kMs_abi_cdecl; sym_kSaveregisters; sym_kSysv_abi_default; sym_kSysv_abi_cdecl;
   sym_kVectorcall; sym_kVarargs; sym_kWinapi; sym_kAlias; sym_kAsm; sym_kBegin; sym_kCase;
   sym_kClass; sym_kConst; sym_kConstructor; sym_kDestructor; sym_kExports; sym_kFor;
   sym_kFunction; sym_kGoto; sym_kIf; sym_kInherited; sym_kInline; sym_kLabel; sym_kNil;
   sym_kNot; sym_kProcedure; sym_kProperty; sym_kRaise; sym_kRepeat; sym_kResourcestring;
   sym_kString; sym_kThreadvar; sym_kTry; sym_kType; sym_kUses; sym_kVar; sym_kWhile; sym_kWith]].

(** State 1267. *)
Definition ts_parse_table_1267 : parse_row :=
  [STATE 6430 [sym_if]; STATE 6457 [sym_ifElse; sym_while; sym_repeat; sym_for; sym_foreach;
   sym_try; sym_case; sym_block; sym_asm; sym_with; sym_raise; sym_statement; sym_goto;
   sym__statement]; STATE 15037 [sym_ifTr; sym_ifElseTr; sym_whileTr; sym_repeatTr; sym_forTr;
   sym_foreachTr; sym_tryTr; sym_caseTr]; STATE 15738 [sym_blockTr]; STATE 15037 [sym_asmTr;
   sym_withTr; sym_raiseTr; sym_statementTr; sym_gotoTr; sym__statementTr];
   STATE 13152 [sym_assignment]; STATE 11905 [sym_varAssignDef]; STATE 13152 [sym_varDef;
   sym_constDef]; STATE 1272 [sym_label]; STATE 7985 [sym__expr; sym_exprConditional];
   STATE 7363 [sym__ref; sym_lambda; sym_inherited; sym_exprDot; sym_exprDeref; sym_exprAs;
   sym_exprTpl; sym_exprSubscript; sym_exprCall]; STATE 7985 [sym_exprBinary; sym_exprUnary];
   STATE 7363 [sym_exprParens; sym_exprBrackets; sym__literal; sym_literalString];
   STATE 6967 [sym__literalString; sym_literalChar]; STATE 7363 [sym_literalNumber];
   STATE 7660 [sym__literalInt; sym__literalFloat];
   STATE 1272 [aux_sym_labeledStatement_repeat1]; STATE 6967 [aux_sym_literalString_repeat1];
   ACTIONS 10800 [anon_sym_SEMI]; ACTIONS 9986 [anon_sym_LBRACK]; ACTIONS 9988 [anon_sym_LPAREN];
   ACTIONS 9990 [aux_sym__literalString_token1]; ACTIONS 9992 [anon_sym_POUND];
   ACTIONS 9994 [aux_sym__literalInt_token1]; ACTIONS 9996 [aux_sym__literalInt_token2;
   aux_sym__literalInt_token3]; ACTIONS 9994 [aux_sym__literalFloat_token1];
   ACTIONS 9998 [sym_kAdd; sym_kSub]; ACTIONS 10000 [sym_kAt]; ACTIONS 10002 [sym_kTrue;
   sym_kFalse]; ACTIONS 10004 [sym_labelNumber]; ACTIONS 3 [sym__space];
   ACTIONS 5 [sym_ppDirective]; ACTIONS 3 [sym_comment]; ACTIONS 10002 [sym_ppFragmentExpr];
   ACTIONS 9990 [sym__literalStringMultiline]; ACTIONS 10006 [sym_identifier];
   ACTIONS 10008 [sym_kSpecialize]; ACTIONS 10136 [sym_kAsm]; ACTIONS 10138 [sym_kBegin];
   ACTIONS 10140 [sym_kCase]; ACTIONS 10016 [sym_kConst]; ACTIONS 4301 [sym_kElse];
   ACTIONS 10142 [sym_kFor]; ACTIONS 10020 [sym_kFunction]; ACTIONS 10144 [sym_kGoto];
   ACTIONS 10146 [sym_kIf]; ACTIONS 10026 [sym_kInherited]; ACTIONS 10002 [sym_kNil];
   ACTIONS 10000 [sym_kNot]; ACTIONS 10020 [sym_kProcedure]; ACTIONS 10148 [sym_kRaise];
   ACTIONS 10150 [sym_kRepeat]; ACTIONS 10032 [sym_kString]; ACTIONS 10152 [sym_kTry];
   ACTIONS 10036 [sym_kVar]; ACTIONS 10154 [sym_kWhile]; ACTIONS 10156 [sym_kWith]].

(** State 1268. *)
Definition ts_parse_table_1268 : parse_row :=
  [ACTIONS 10802 [anon_sym_SEMI; anon_sym_COMMA; anon_sym_LBRACK];
   ACTIONS 10804 [anon_sym_LPAREN]; ACTIONS 10802 [aux_sym__literalString_token1;
   anon_sym_POUND]; ACTIONS 10804 [aux_sym__literalInt_token1];
   ACTIONS 10802 [aux_sym__literalInt_token2; aux_sym__literalInt_token3];
   ACTIONS 10804 [aux_sym__literalFloat_token1]; ACTIONS 10802 [aux_sym_ppUsesBlock_token1;
   aux_sym_ppUsesBlock_token2; aux_sym_ppUsesBlock_token3]; ACTIONS 10804 [sym_kAdd; sym_kSub];
   ACTIONS 10802 [sym_kAt; sym_kTrue; sym_kFalse]; ACTIONS 3 [sym__space];
   ACTIONS 5 [sym_ppDirective]; ACTIONS 3 [sym_comment]; ACTIONS 10802 [sym_ppFragmentExpr;
   sym__literalStringMultiline; sym_identifier; sym_kDefault; sym_kNodefault; sym_kDispId;
   sym_kGeneric; sym_kSpecialize; sym_kOperator; sym_kPublic; sym_kStatic; sym_kVirtual;
   sym_kAbstract; sym_kDynamic; sym_kOverride; sym_kOverload; sym_kReintroduce; sym_kStdcall;
   sym_kCdecl; sym_kCppdecl; sym_kPascal; sym_kRegister; sym_kMwpascal; sym_kMessage;
   sym_kDeprecated; sym_kExperimental; sym_kPlatform; sym_kUnimplemented; sym_kCvar; sym_kExport;
   sym_kFar; sym_kNear; sym_kSafecall; sym_kAssembler; sym_kNostackframe; sym_kInterrupt;
   sym_kNoreturn; sym_kIocheck; sym_kLocal; sym_kHardfloat; sym_kSoftfloat; sym_kMs_abi_default;
   sym_kMs_abi_cdecl; sym_kSaveregisters; sym_kSysv_abi_default; sym_kSysv_abi_cdecl;
   sym_kVectorcall; sym_kVarargs; sym_kWinapi; sym_kAlias; sym_kAsm; sym_kBegin; sym_kCase;
   sym_kClass; sym_kConst; sym_kConstructor; sym_kDestructor; sym_kElse; sym_kExports; sym_kFor;
   sym_kFunction; sym_kGoto; sym_kIf; sym_kInherited; sym_kLabel; sym_kNil; sym_kNot;
   sym_kProcedure; sym_kProperty; sym_kRaise; sym_kRepeat; sym_kResourcestring; sym_kString;
   sym_kThreadvar; sym_kTry; sym_kType; sym_kUses; sym_kVar; sym_kWhile; sym_kWith]].

(** State 1269. *)
Definition ts_parse_table_1269 : parse_row :=
  [ACTIONS 10806 [anon_sym_SEMI; anon_sym_COMMA; anon_sym_LBRACK];
   ACTIONS 10808 [anon_sym_LPAREN]; ACTIONS 10806 [aux_sym__literalString_token1;
   anon_sym_POUND]; ACTIONS 10808 [aux_sym__literalInt_token1];
   ACTIONS 10806 [aux_sym__literalInt_token2; aux_sym__literalInt_token3];
   ACTIONS 10808 [aux_sym__literalFloat_token1]; ACTIONS 10806 [aux_sym_ppUsesBlock_token1;
   aux_sym_ppUsesBlock_token2; aux_sym_ppUsesBlock_token3]; ACTIONS 10808 [sym_kAdd; sym_kSub];
   ACTIONS 10806 [sym_kAt; sym_kTrue; sym_kFalse]; ACTIONS 3 [sym__space];
   ACTIONS 5 [sym_ppDirective]; ACTIONS 3 [sym_comment]; ACTIONS 10806 [sym_ppFragmentExpr;
   sym__literalStringMultiline; sym_identifier; sym_kDefault; sym_kNodefault; sym_kDispId;
   sym_kGeneric; sym_kSpecialize; sym_kOperator; sym_kPublic; sym_kStatic; sym_kVirtual;
   sym_kAbstract; sym_kDynamic; sym_kOverride; sym_kOverload; sym_kReintroduce; sym_kStdcall;
   sym_kCdecl; sym_kCppdecl; sym_kPascal; sym_kRegister; sym_kMwpascal; sym_kMessage;
   sym_kDeprecated; sym_kExperimental; sym_kPlatform; sym_kUnimplemented; sym_kCvar; sym_kExport;
   sym_kFar; sym_kNear; sym_kSafecall; sym_kAssembler; sym_kNostackframe; sym_kInterrupt;
   sym_kNoreturn; sym_kIocheck; sym_kLocal; sym_kHardfloat; sym_kSoftfloat; sym_kMs_abi_default;
   sym_kMs_abi_cdecl; sym_kSaveregisters; sym_kSysv_abi_default; sym_kSysv_abi_cdecl;
   sym_kVectorcall; sym_kVarargs; sym_kWinapi; sym_kAlias; sym_kAsm; sym_kBegin; sym_kCase;
   sym_kClass; sym_kConst; sym_kConstructor; sym_kDestructor; sym_kElse; sym_kExports; sym_kFor;
   sym_kFunction; sym_kGoto; sym_kIf; sym_kInherited; sym_kLabel; sym_kNil; sym_kNot;
   sym_kProcedure; sym_kProperty; sym_kRaise; sym_kRepeat; sym_kResourcestring; sym_kString;
   sym_kThreadvar; sym_kTry; sym_kType; sym_kUses; sym_kVar; sym_kWhile; sym_kWith]].

(** State 1270. *)
Definition ts_parse_table_1270 : parse_row :=
  [ACTIONS 10810 [anon_sym_SEMI; anon_sym_COMMA; anon_sym_LBRACK];
   ACTIONS 10812 [anon_sym_LPAREN]; ACTIONS 10810 [aux_sym__literalString_token1;
   anon_sym_POUND]; ACTIONS 10812 [aux_sym__literalInt_token1];
   ACTIONS 10810 [aux_sym__literalInt_token2; aux_sym__literalInt_token3];
   ACTIONS 10812 [aux_sym__literalFloat_token1]; ACTIONS 10810 [aux_sym_ppUsesBlock_token1;
   aux_sym_ppUsesBlock_token2; aux_sym_ppUsesBlock_token3]; ACTIONS 10812 [sym_kAdd; sym_kSub];
   ACTIONS 10810 [sym_kAt; sym_kTrue; sym_kFalse]; ACTIONS 3 [sym__space];
   ACTIONS 5 [sym_ppDirective]; ACTIONS 3 [sym_comment]; ACTIONS 10810 [sym_ppFragmentExpr;
   sym__literalStringMultiline; sym_identifier; sym_kDefault; sym_kNodefault; sym_kDispId;
   sym_kGeneric; sym_kSpecialize; sym_kOperator; sym_kPublic; sym_kStatic; sym_kVirtual;
   sym_kAbstract; sym_kDynamic; sym_kOverride; sym_kOverload; sym_kReintroduce; sym_kStdcall;
   sym_kCdecl; sym_kCppdecl; sym_kPascal; sym_kRegister; sym_kMwpascal; sym_kMessage;
   sym_kDeprecated; sym_kExperimental; sym_kPlatform; sym_kUnimplemented; sym_kCvar; sym_kExport;
   sym_kFar; sym_kNear; sym_kSafecall; sym_kAssembler; sym_kNostackframe; sym_kInterrupt;
   sym_kNoreturn; sym_kIocheck; sym_kLocal; sym_kHardfloat; sym_kSoftfloat; sym_kMs_abi_default;
   sym_kMs_abi_cdecl; sym_kSaveregisters; sym_kSysv_abi_default; sym_kSysv_abi_cdecl;
   sym_kVectorcall; sym_kVarargs; sym_kWinapi; sym_kAlias; sym_kAsm; sym_kBegin; sym_kCase;
   sym_kClass; sym_kConst; sym_kConstructor; sym_kDestructor; sym_kElse; sym_kExports; sym_kFor;
   sym_kFunction; sym_kGoto; sym_kIf; sym_kInherited; sym_kLabel; sym_kNil; sym_kNot;
   sym_kProcedure; sym_kProperty; sym_kRaise; sym_kRepeat; sym_kResourcestring; sym_kString;
   sym_kThreadvar; sym_kTry; sym_kType; sym_kUses; sym_kVar; sym_kWhile; sym_kWith]].

(** State 1271. *)
Definition ts_parse_table_1271 : parse_row :=
  [STATE 6214 [sym_if]; STATE 6210 [sym_ifElse; sym_while; sym_repeat; sym_for; sym_foreach;
   sym_try; sym_case; sym_block; sym_asm; sym_with; sym_raise; sym_statement; sym_goto;
   sym__statement]; STATE 14724 [sym_ifTr; sym_ifElseTr; sym_whileTr; sym_repeatTr; sym_forTr;
   sym_foreachTr; sym_tryTr; sym_caseTr]; STATE 15738 [sym_blockTr]; STATE 14724 [sym_asmTr;
   sym_withTr; sym_raiseTr; sym_statementTr; sym_gotoTr; sym__statementTr];
   STATE 13660 [sym_assignment]; STATE 11905 [sym_varAssignDef]; STATE 13660 [sym_varDef;
   sym_constDef]; STATE 6187 [sym_label]; STATE 7979 [sym__expr; sym_exprConditional];
   STATE 7363 [sym__ref; sym_lambda; sym_inherited; sym_exprDot; sym_exprDeref; sym_exprAs;
   sym_exprTpl; sym_exprSubscript; sym_exprCall]; STATE 7979 [sym_exprBinary; sym_exprUnary];
   STATE 7363 [sym_exprParens; sym_exprBrackets; sym__literal; sym_literalString];
   STATE 6967 [sym__literalString; sym_literalChar]; STATE 7363 [sym_literalNumber];
   STATE 7660 [sym__literalInt; sym__literalFloat];
   STATE 6187 [aux_sym_labeledStatement_repeat1]; STATE 6967 [aux_sym_literalString_repeat1];
   ACTIONS 10814 [anon_sym_SEMI]; ACTIONS 9986 [anon_sym_LBRACK]; ACTIONS 9988 [anon_sym_LPAREN];
   ACTIONS 9990 [aux_sym__literalString_token1]; ACTIONS 9992 [anon_sym_POUND];
   ACTIONS 9994 [aux_sym__literalInt_token1]; ACTIONS 9996 [aux_sym__literalInt_token2;
   aux_sym__literalInt_token3]; ACTIONS 9994 [aux_sym__literalFloat_token1];
   ACTIONS 9998 [sym_kAdd; sym_kSub]; ACTIONS 10000 [sym_kAt]; ACTIONS 10002 [sym_kTrue;
   sym_kFalse]; ACTIONS 10004 [sym_labelNumber]; ACTIONS 3 [sym__space];
   ACTIONS 5 [sym_ppDirective]; ACTIONS 3 [sym_comment]; ACTIONS 10002 [sym_ppFragmentExpr];
   ACTIONS 9990 [sym__literalStringMultiline]; ACTIONS 10006 [sym_identifier];
   ACTIONS 10008 [sym_kSpecialize]; ACTIONS 10200 [sym_kAsm]; ACTIONS 10202 [sym_kBegin];
   ACTIONS 10204 [sym_kCase]; ACTIONS 10016 [sym_kConst]; ACTIONS 4439 [sym_kElse];
   ACTIONS 10208 [sym_kFor]; ACTIONS 10020 [sym_kFunction]; ACTIONS 10210 [sym_kGoto];
   ACTIONS 10212 [sym_kIf]; ACTIONS 10026 [sym_kInherited]; ACTIONS 10002 [sym_kNil];
   ACTIONS 10000 [sym_kNot]; ACTIONS 10020 [sym_kProcedure]; ACTIONS 10214 [sym_kRaise];
   ACTIONS 10216 [sym_kRepeat]; ACTIONS 10032 [sym_kString]; ACTIONS 10218 [sym_kTry];
   ACTIONS 10036 [sym_kVar]; ACTIONS 10220 [sym_kWhile]; ACTIONS 10222 [sym_kWith]].

(** State 1272. *)
Definition ts_parse_table_1272 : parse_row :=
  [STATE 6430 [sym_if]; STATE 6406 [sym_ifElse; sym_while; sym_repeat; sym_for; sym_foreach;
   sym_try; sym_case; sym_block; sym_asm; sym_with; sym_raise; sym_statement; sym_goto;
   sym__statement]; STATE 14724 [sym_ifTr; sym_ifElseTr; sym_whileTr; sym_repeatTr; sym_forTr;
   sym_foreachTr; sym_tryTr; sym_caseTr]; STATE 15738 [sym_blockTr]; STATE 14724 [sym_asmTr;
   sym_withTr; sym_raiseTr; sym_statementTr; sym_gotoTr; sym__statementTr];
   STATE 13152 [sym_assignment]; STATE 11905 [sym_varAssignDef]; STATE 13152 [sym_varDef;
   sym_constDef]; STATE 6187 [sym_label]; STATE 7985 [sym__expr; sym_exprConditional];
   STATE 7363 [sym__ref; sym_lambda; sym_inherited; sym_exprDot; sym_exprDeref; sym_exprAs;
   sym_exprTpl; sym_exprSubscript; sym_exprCall]; STATE 7985 [sym_exprBinary; sym_exprUnary];
   STATE 7363 [sym_exprParens; sym_exprBrackets; sym__literal; sym_literalString];
   STATE 6967 [sym__literalString; sym_literalChar]; STATE 7363 [sym_literalNumber];
   STATE 7660 [sym__literalInt; sym__literalFloat];
   STATE 6187 [aux_sym_labeledStatement_repeat1]; STATE 6967 [aux_sym_literalString_repeat1];
   ACTIONS 10816 [anon_sym_SEMI]; ACTIONS 9986 [anon_sym_LBRACK]; ACTIONS 9988 [anon_sym_LPAREN];
   ACTIONS 9990 [aux_sym__literalString_token1]; ACTIONS 9992 [anon_sym_POUND];
   ACTIONS 9994 [aux_sym__literalInt_token1]; ACTIONS 9996 [aux_sym__literalInt_token2;
   aux_sym__literalInt_token3]; ACTIONS 9994 [aux_sym__literalFloat_token1];
   ACTIONS 9998 [sym_kAdd; sym_kSub]; ACTIONS 10000 [sym_kAt]; ACTIONS 10002 [sym_kTrue;
   sym_kFalse]; ACTIONS 10004 [sym_labelNumber]; ACTIONS 3 [sym__space];
   ACTIONS 5 [sym_ppDirective]; ACTIONS 3 [sym_comment]; ACTIONS 10002 [sym_ppFragmentExpr];
   ACTIONS 9990 [sym__literalStringMultiline]; ACTIONS 10006 [sym_identifier];
   ACTIONS 10008 [sym_kSpecialize]; ACTIONS 10136 [sym_kAsm]; ACTIONS 10138 [sym_kBegin];
   ACTIONS 10140 [sym_kCase]; ACTIONS 10016 [sym_kConst]; ACTIONS 4439 [sym_kElse];
   ACTIONS 10142 [sym_kFor]; ACTIONS 10020 [sym_kFunction]; ACTIONS 10144 [sym_kGoto];
   ACTIONS 10146 [sym_kIf]; ACTIONS 10026 [sym_kInherited]; ACTIONS 10002 [sym_kNil];
   ACTIONS 10000 [sym_kNot]; ACTIONS 10020 [sym_kProcedure]; ACTIONS 10148 [sym_kRaise];
   ACTIONS 10150 [sym_kRepeat]; ACTIONS 10032 [sym_kString]; ACTIONS 10152 [sym_kTry];
   ACTIONS 10036 [sym_kVar]; ACTIONS 10154 [sym_kWhile]; ACTIONS 10156 [sym_kWith]].

(** State 1273. *)
Definition ts_parse_table_1273 : parse_row :=
  [ACTIONS 10818 [anon_sym_SEMI; anon_sym_COMMA; anon_sym_LBRACK];
   ACTIONS 10820 [anon_sym_LPAREN]; ACTIONS 10818 [aux_sym__literalString_token1;
   anon_sym_POUND]; ACTIONS 10820 [aux_sym__literalInt_token1];
   ACTIONS 10818 [aux_sym__literalInt_token2; aux_sym__literalInt_token3];
   ACTIONS 10820 [aux_sym__literalFloat_token1]; ACTIONS 10818 [aux_sym_ppUsesBlock_token1;
   aux_sym_ppUsesBlock_token2; aux_sym_ppUsesBlock_token3]; ACTIONS 10820 [sym_kAdd; sym_kSub];
   ACTIONS 10818 [sym_kAt; sym_kTrue; sym_kFalse]; ACTIONS 3 [sym__space];
   ACTIONS 5 [sym_ppDirective]; ACTIONS 3 [sym_comment]; ACTIONS 10818 [sym_ppFragmentExpr;
   sym__literalStringMultiline; sym_identifier; sym_kDefault; sym_kNodefault; sym_kDispId;
   sym_kGeneric; sym_kSpecialize; sym_kOperator; sym_kPublic; sym_kStatic; sym_kVirtual;
   sym_kAbstract; sym_kDynamic; sym_kOverride; sym_kOverload; sym_kReintroduce; sym_kStdcall;
   sym_kCdecl; sym_kCppdecl; sym_kPascal; sym_kRegister; sym_kMwpascal; sym_kMessage;
   sym_kDeprecated; sym_kExperimental; sym_kPlatform; sym_kUnimplemented; sym_kCvar; sym_kExport;
   sym_kFar; sym_kNear; sym_kSafecall; sym_kAssembler; sym_kNostackframe; sym_kInterrupt;
   sym_kNoreturn; sym_kIocheck; sym_kLocal; sym_kHardfloat; sym_kSoftfloat; sym_kMs_abi_default;
   sym_kMs_abi_cdecl; sym_kSaveregisters; sym_kSysv_abi_default; sym_kSysv_abi_cdecl;
   sym_kVectorcall; sym_kVarargs; sym_kWinapi; sym_kAlias; sym_kAsm; sym_kBegin; sym_kCase;
   sym_kClass; sym_kConst; sym_kConstructor; sym_kDestructor; sym_kElse; sym_kExports; sym_kFor;
   sym_kFunction; sym_kGoto; sym_kIf; sym_kInherited; sym_kLabel; sym_kNil; sym_kNot;
   sym_kProcedure; sym_kProperty; sym_kRaise; sym_kRepeat; sym_kResourcestring; sym_kString;
   sym_kThreadvar; sym_kTry; sym_kType; sym_kUses; sym_kVar; sym_kWhile; sym_kWith]].

(** State 1274. *)
Definition ts_parse_table_1274 : parse_row :=
  [STATE 5914 [sym_if]; STATE 5991 [sym_ifElse; sym_while; sym_repeat; sym_for; sym_foreach;
   sym_try; sym_case; sym_block; sym_asm; sym_with; sym_raise; sym_statement; sym_goto;
   sym__statement]; STATE 15037 [sym_ifTr; sym_ifElseTr; sym_whileTr; sym_repeatTr; sym_forTr;
   sym_foreachTr; sym_tryTr; sym_caseTr]; STATE 15738 [sym_blockTr]; STATE 15037 [sym_asmTr;
   sym_withTr; sym_raiseTr; sym_statementTr; sym_gotoTr; sym__statementTr];
   STATE 13130 [sym_assignment]; STATE 11905 [sym_varAssignDef]; STATE 13130 [sym_varDef;
   sym_constDef]; STATE 1275 [sym_label]; STATE 8020 [sym__expr; sym_exprConditional];
   STATE 7363 [sym__ref; sym_lambda; sym_inherited; sym_exprDot; sym_exprDeref; sym_exprAs;
   sym_exprTpl; sym_exprSubscript; sym_exprCall]; STATE 8020 [sym_exprBinary; sym_exprUnary];
   STATE 7363 [sym_exprParens; sym_exprBrackets; sym__literal; sym_literalString];
   STATE 6967 [sym__literalString; sym_literalChar]; STATE 7363 [sym_literalNumber];
   STATE 7660 [sym__literalInt; sym__literalFloat];
   STATE 1275 [aux_sym_labeledStatement_repeat1]; STATE 6967 [aux_sym_literalString_repeat1];
   ACTIONS 10822 [anon_sym_SEMI]; ACTIONS 9986 [anon_sym_LBRACK]; ACTIONS 9988 [anon_sym_LPAREN];
   ACTIONS 9990 [aux_sym__literalString_token1]; ACTIONS 9992 [anon_sym_POUND];
   ACTIONS 9994 [aux_sym__literalInt_token1]; ACTIONS 9996 [aux_sym__literalInt_token2;
   aux_sym__literalInt_token3]; ACTIONS 9994 [aux_sym__literalFloat_token1];
   ACTIONS 9998 [sym_kAdd; sym_kSub]; ACTIONS 10000 [sym_kAt]; ACTIONS 10002 [sym_kTrue;
   sym_kFalse]; ACTIONS 10004 [sym_labelNumber]; ACTIONS 3 [sym__space];
   ACTIONS 5 [sym_ppDirective]; ACTIONS 3 [sym_comment]; ACTIONS 10002 [sym_ppFragmentExpr];
   ACTIONS 9990 [sym__literalStringMultiline]; ACTIONS 10006 [sym_identifier];
   ACTIONS 10008 [sym_kSpecialize]; ACTIONS 10494 [sym_kAsm]; ACTIONS 10496 [sym_kBegin];
   ACTIONS 10498 [sym_kCase]; ACTIONS 10016 [sym_kConst]; ACTIONS 4301 [sym_kElse];
   ACTIONS 10502 [sym_kFor]; ACTIONS 10020 [sym_kFunction]; ACTIONS 10504 [sym_kGoto];
   ACTIONS 10644 [sym_kIf]; ACTIONS 10026 [sym_kInherited]; ACTIONS 10002 [sym_kNil];
   ACTIONS 10000 [sym_kNot]; ACTIONS 10020 [sym_kProcedure]; ACTIONS 10508 [sym_kRaise];
   ACTIONS 10510 [sym_kRepeat]; ACTIONS 10032 [sym_kString]; ACTIONS 10512 [sym_kTry];
   ACTIONS 10036 [sym_kVar]; ACTIONS 10514 [sym_kWhile]; ACTIONS 10516 [sym_kWith]].

(** State 1275. *)
Definition ts_parse_table_1275 : parse_row :=
  [STATE 5914 [sym_if]; STATE 5906 [sym_ifElse; sym_while; sym_repeat; sym_for; sym_foreach;
   sym_try; sym_case; sym_block; sym_asm; sym_with; sym_raise; sym_statement; sym_goto;
   sym__statement]; STATE 14724 [sym_ifTr; sym_ifElseTr; sym_whileTr; sym_repeatTr; sym_forTr;
   sym_foreachTr; sym_tryTr; sym_caseTr]; STATE 15738 [sym_blockTr]; STATE 14724 [sym_asmTr;
   sym_withTr; sym_raiseTr; sym_statementTr; sym_gotoTr; sym__statementTr];
   STATE 13130 [sym_assignment]; STATE 11905 [sym_varAssignDef]; STATE 13130 [sym_varDef;
   sym_constDef]; STATE 6187 [sym_label]; STATE 8020 [sym__expr; sym_exprConditional];
   STATE 7363 [sym__ref; sym_lambda; sym_inherited; sym_exprDot; sym_exprDeref; sym_exprAs;
   sym_exprTpl; sym_exprSubscript; sym_exprCall]; STATE 8020 [sym_exprBinary; sym_exprUnary];
   STATE 7363 [sym_exprParens; sym_exprBrackets; sym__literal; sym_literalString];
   STATE 6967 [sym__literalString; sym_literalChar]; STATE 7363 [sym_literalNumber];
   STATE 7660 [sym__literalInt; sym__literalFloat];
   STATE 6187 [aux_sym_labeledStatement_repeat1]; STATE 6967 [aux_sym_literalString_repeat1];
   ACTIONS 10824 [anon_sym_SEMI]; ACTIONS 9986 [anon_sym_LBRACK]; ACTIONS 9988 [anon_sym_LPAREN];
   ACTIONS 9990 [aux_sym__literalString_token1]; ACTIONS 9992 [anon_sym_POUND];
   ACTIONS 9994 [aux_sym__literalInt_token1]; ACTIONS 9996 [aux_sym__literalInt_token2;
   aux_sym__literalInt_token3]; ACTIONS 9994 [aux_sym__literalFloat_token1];
   ACTIONS 9998 [sym_kAdd; sym_kSub]; ACTIONS 10000 [sym_kAt]; ACTIONS 10002 [sym_kTrue;
   sym_kFalse]; ACTIONS 10004 [sym_labelNumber]; ACTIONS 3 [sym__space];
   ACTIONS 5 [sym_ppDirective]; ACTIONS 3 [sym_comment]; ACTIONS 10002 [sym_ppFragmentExpr];
   ACTIONS 9990 [sym__literalStringMultiline]; ACTIONS 10006 [sym_identifier];
   ACTIONS 10008 [sym_kSpecialize]; ACTIONS 10494 [sym_kAsm]; ACTIONS 10496 [sym_kBegin];
   ACTIONS 10498 [sym_kCase]; ACTIONS 10016 [sym_kConst]; ACTIONS 4439 [sym_kElse];
   ACTIONS 10502 [sym_kFor]; ACTIONS 10020 [sym_kFunction]; ACTIONS 10504 [sym_kGoto];
   ACTIONS 10644 [sym_kIf]; ACTIONS 10026 [sym_kInherited]; ACTIONS 10002 [sym_kNil];
   ACTIONS 10000 [sym_kNot]; ACTIONS 10020 [sym_kProcedure]; ACTIONS 10508 [sym_kRaise];
   ACTIONS 10510 [sym_kRepeat]; ACTIONS 10032 [sym_kString]; ACTIONS 10512 [sym_kTry];
   ACTIONS 10036 [sym_kVar]; ACTIONS 10514 [sym_kWhile]; ACTIONS 10516 [sym_kWith]].

(** State 1276. *)
Definition ts_parse_table_1276 : parse_row :=
  [ACTIONS 9810 [anon_sym_SEMI; anon_sym_COMMA; anon_sym_LBRACK]; ACTIONS 9812 [anon_sym_LPAREN];
   ACTIONS 9810 [aux_sym__literalString_token1; anon_sym_POUND];
   ACTIONS 9812 [aux_sym__literalInt_token1]; ACTIONS 9810 [aux_sym__literalInt_token2;
   aux_sym__literalInt_token3]; ACTIONS 9812 [aux_sym__literalFloat_token1];
   ACTIONS 9810 [aux_sym_ppUsesBlock_token1; aux_sym_ppUsesBlock_token2;
   aux_sym_ppUsesBlock_token3]; ACTIONS 9812 [sym_kAdd; sym_kSub]; ACTIONS 9810 [sym_kAt;
   sym_kTrue; sym_kFalse]; ACTIONS 3 [sym__space]; ACTIONS 5 [sym_ppDirective];
   ACTIONS 3 [sym_comment]; ACTIONS 9810 [sym_ppFragmentExpr; sym__literalStringMultiline;
   sym_identifier; sym_kDefault; sym_kNodefault; sym_kDispId; sym_kGeneric; sym_kSpecialize;
   sym_kOperator; sym_kPublic; sym_kStatic; sym_kVirtual; sym_kAbstract; sym_kDynamic;
   sym_kOverride; sym_kOverload; sym_kReintroduce; sym_kStdcall; sym_kCdecl; sym_kCppdecl;
   sym_kPascal; sym_kRegister; sym_kMwpascal; sym_kMessage; sym_kDeprecated; sym_kExperimental;
   sym_kPlatform; sym_kUnimplemented; sym_kCvar; sym_kExport; sym_kFar; sym_kNear; sym_kSafecall;
   sym_kAssembler; sym_kNostackframe; sym_kInterrupt; sym_kNoreturn; sym_kIocheck; sym_kLocal;
   sym_kHardfloat; sym_kSoftfloat; sym_kMs_abi_default; sym_kMs_abi_cdecl; sym_kSaveregisters;
   sym_kSysv_abi_default; sym_kSysv_abi_cdecl; sym_kVectorcall; sym_kVarargs; sym_kWinapi;
   sym_kAlias; sym_kAsm; sym_kBegin; sym_kCase; sym_kClass; sym_kConst; sym_kConstructor;
   sym_kDestructor; sym_kExports; sym_kFor; sym_kFunction; sym_kGoto; sym_kIf; sym_kInherited;
   sym_kInline; sym_kLabel; sym_kNil; sym_kNot; sym_kProcedure; sym_kProperty; sym_kRaise;
   sym_kRepeat; sym_kResourcestring; sym_kString; sym_kThreadvar; sym_kTry; sym_kType; sym_kUses;
   sym_kVar; sym_kWhile; sym_kWith]].

(** State 1277. *)
Definition ts_parse_table_1277 : parse_row :=
  [ACTIONS 10720 [anon_sym_SEMI; anon_sym_COMMA; anon_sym_LBRACK];
   ACTIONS 10722 [anon_sym_LPAREN]; ACTIONS 10720 [aux_sym__literalString_token1;
   anon_sym_POUND]; ACTIONS 10722 [aux_sym__literalInt_token1];
   ACTIONS 10720 [aux_sym__literalInt_token2; aux_sym__literalInt_token3];
   ACTIONS 10722 [aux_sym__literalFloat_token1]; ACTIONS 10720 [aux_sym_ppUsesBlock_token1;
   aux_sym_ppUsesBlock_token2; aux_sym_ppUsesBlock_token3]; ACTIONS 10722 [sym_kAdd; sym_kSub];
   ACTIONS 10720 [sym_kAt; sym_kTrue; sym_kFalse]; ACTIONS 3 [sym__space];
   ACTIONS 5 [sym_ppDirective]; ACTIONS 3 [sym_comment]; ACTIONS 10720 [sym_ppFragmentExpr;
   sym__literalStringMultiline; sym_identifier; sym_kDefault; sym_kNodefault; sym_kDispId;
   sym_kGeneric; sym_kSpecialize; sym_kOperator; sym_kPublic; sym_kStatic; sym_kVirtual;
   sym_kAbstract; sym_kDynamic; sym_kOverride; sym_kOverload; sym_kReintroduce; sym_kStdcall;
   sym_kCdecl; sym_kCppdecl; sym_kPascal; sym_kRegister; sym_kMwpascal; sym_kMessage;
   sym_kDeprecated; sym_kExperimental; sym_kPlatform; sym_kUnimplemented; sym_kCvar; sym_kExport;
   sym_kFar; sym_kNear; sym_kSafecall; sym_kAssembler; sym_kNostackframe; sym_kInterrupt;
   sym_kNoreturn; sym_kIocheck; sym_kLocal; sym_kHardfloat; sym_kSoftfloat; sym_kMs_abi_default;
   sym_kMs_abi_cdecl; sym_kSaveregisters; sym_kSysv_abi_default; sym_kSysv_abi_cdecl;
   sym_kVectorcall; sym_kVarargs; sym_kWinapi; sym_kAlias; sym_kAsm; sym_kBegin; sym_kCase;
   sym_kClass; sym_kConst; sym_kConstructor; sym_kDestructor; sym_kElse; sym_kExports; sym_kFor;
   sym_kFunction; sym_kGoto; sym_kIf; sym_kInherited; sym_kLabel; sym_kNil; sym_kNot;
   sym_kProcedure; sym_kProperty; sym_kRaise; sym_kRepeat; sym_kResourcestring; sym_kString;
   sym_kThreadvar; sym_kTry; sym_kType; sym_kUses; sym_kVar; sym_kWhile; sym_kWith]].

(** State 1278. *)
Definition ts_parse_table_1278 : parse_row :=
  [ACTIONS 10826 [anon_sym_SEMI; anon_sym_COMMA; anon_sym_LBRACK];
   ACTIONS 10828 [anon_sym_LPAREN]; ACTIONS 10826 [aux_sym__literalString_token1;
   anon_sym_POUND]; ACTIONS 10828 [aux_sym__literalInt_token1];
   ACTIONS 10826 [aux_sym__literalInt_token2; aux_sym__literalInt_token3];
   ACTIONS 10828 [aux_sym__literalFloat_token1]; ACTIONS 10826 [aux_sym_ppUsesBlock_token1;
   aux_sym_ppUsesBlock_token2; aux_sym_ppUsesBlock_token3]; ACTIONS 10828 [sym_kAdd; sym_kSub];
   ACTIONS 10826 [sym_kAt; sym_kTrue; sym_kFalse]; ACTIONS 3 [sym__space];
   ACTIONS 5 [sym_ppDirective]; ACTIONS 3 [sym_comment]; ACTIONS 10826 [sym_ppFragmentExpr;
   sym__literalStringMultiline; sym_identifier; sym_kDefault; sym_kNodefault; sym_kDispId;
   sym_kGeneric; sym_kSpecialize; sym_kOperator; sym_kPublic; sym_kStatic; sym_kVirtual;
   sym_kAbstract; sym_kDynamic; sym_kOverride; sym_kOverload; sym_kReintroduce; sym_kStdcall;
   sym_kCdecl; sym_kCppdecl; sym_kPascal; sym_kRegister; sym_kMwpascal; sym_kMessage;
   sym_kDeprecated; sym_kExperimental; sym_kPlatform; sym_kUnimplemented; sym_kCvar; sym_kExport;
   sym_kFar; sym_kNear; sym_kSafecall; sym_kAssembler; sym_kNostackframe; sym_kInterrupt;
   sym_kNoreturn; sym_kIocheck; sym_kLocal; sym_kHardfloat; sym_kSoftfloat; sym_kMs_abi_default;
   sym_kMs_abi_cdecl; sym_kSaveregisters; sym_kSysv_abi_default; sym_kSysv_abi_cdecl;
   sym_kVectorcall; sym_kVarargs; sym_kWinapi; sym_kAlias; sym_kAsm; sym_kBegin; sym_kCase;
   sym_kClass; sym_kConst; sym_kConstructor; sym_kDestructor; sym_kElse; sym_kExports; sym_kFor;
   sym_kFunction; sym_kGoto; sym_kIf; sym_kInherited; sym_kLabel; sym_kNil; sym_kNot;
   sym_kProcedure; sym_kProperty; sym_kRaise; sym_kRepeat; sym_kResourcestring; sym_kString;
   sym_kThreadvar; sym_kTry; sym_kType; sym_kUses; sym_kVar; sym_kWhile; sym_kWith]].

(** State 1279. *)
Definition ts_parse_table_1279 : parse_row :=
  [STATE 5864 [sym_if]; STATE 5873 [sym_ifElse; sym_while; sym_repeat; sym_for; sym_foreach;
   sym_try; sym_case; sym_block; sym_asm; sym_with; sym_raise; sym_statement; sym_goto;
   sym__statement]; STATE 15037 [sym_ifTr; sym_ifElseTr; sym_whileTr; sym_repeatTr; sym_forTr;
   sym_foreachTr; sym_tryTr; sym_caseTr]; STATE 15738 [sym_blockTr]; STATE 15037 [sym_asmTr;
   sym_withTr; sym_raiseTr; sym_statementTr; sym_gotoTr; sym__statementTr];
   STATE 13343 [sym_assignment]; STATE 11905 [sym_varAssignDef]; STATE 13343 [sym_varDef;
   sym_constDef]; STATE 1222 [sym_label]; STATE 7969 [sym__expr; sym_exprConditional];
   STATE 7363 [sym__ref; sym_lambda; sym_inherited; sym_exprDot; sym_exprDeref; sym_exprAs;
   sym_exprTpl; sym_exprSubscript; sym_exprCall]; STATE 7969 [sym_exprBinary; sym_exprUnary];
   STATE 7363 [sym_exprParens; sym_exprBrackets; sym__literal; sym_literalString];
   STATE 6967 [sym__literalString; sym_literalChar]; STATE 7363 [sym_literalNumber];
   STATE 7660 [sym__literalInt; sym__literalFloat];
   STATE 1222 [aux_sym_labeledStatement_repeat1]; STATE 6967 [aux_sym_literalString_repeat1];
   ACTIONS 10830 [anon_sym_SEMI]; ACTIONS 9986 [anon_sym_LBRACK]; ACTIONS 9988 [anon_sym_LPAREN];
   ACTIONS 9990 [aux_sym__literalString_token1]; ACTIONS 9992 [anon_sym_POUND];
   ACTIONS 9994 [aux_sym__literalInt_token1]; ACTIONS 9996 [aux_sym__literalInt_token2;
   aux_sym__literalInt_token3]; ACTIONS 9994 [aux_sym__literalFloat_token1];
   ACTIONS 9998 [sym_kAdd; sym_kSub]; ACTIONS 10000 [sym_kAt]; ACTIONS 10002 [sym_kTrue;
   sym_kFalse]; ACTIONS 10004 [sym_labelNumber]; ACTIONS 3 [sym__space];
   ACTIONS 5 [sym_ppDirective]; ACTIONS 3 [sym_comment]; ACTIONS 10002 [sym_ppFragmentExpr];
   ACTIONS 9990 [sym__literalStringMultiline]; ACTIONS 10006 [sym_identifier];
   ACTIONS 10008 [sym_kSpecialize]; ACTIONS 10466 [sym_kAsm]; ACTIONS 10468 [sym_kBegin];
   ACTIONS 10470 [sym_kCase]; ACTIONS 10016 [sym_kConst]; ACTIONS 4301 [sym_kElse];
   ACTIONS 10472 [sym_kFor]; ACTIONS 10020 [sym_kFunction]; ACTIONS 10474 [sym_kGoto];
   ACTIONS 10476 [sym_kIf]; ACTIONS 10026 [sym_kInherited]; ACTIONS 10002 [sym_kNil];
   ACTIONS 10000 [sym_kNot]; ACTIONS 10020 [sym_kProcedure]; ACTIONS 10478 [sym_kRaise];
   ACTIONS 10480 [sym_kRepeat]; ACTIONS 10032 [sym_kString]; ACTIONS 10482 [sym_kTry];
   ACTIONS 10036 [sym_kVar]; ACTIONS 10484 [sym_kWhile]; ACTIONS 10486 [sym_kWith]].

(** State 1280. *)
Definition ts_parse_table_1280 : parse_row :=
  [STATE 6451 [sym_if]; STATE 6409 [sym_ifElse; sym_while; sym_repeat; sym_for; sym_foreach;
   sym_try; sym_case; sym_block; sym_asm; sym_with; sym_raise; sym_statement; sym_goto;
   sym__statement]; STATE 15037 [sym_ifTr; sym_ifElseTr; sym_whileTr; sym_repeatTr; sym_forTr;
   sym_foreachTr; sym_tryTr; sym_caseTr]; STATE 15738 [sym_blockTr]; STATE 15037 [sym_asmTr;
   sym_withTr; sym_raiseTr; sym_statementTr; sym_gotoTr; sym__statementTr];
   STATE 13614 [sym_assignment]; STATE 11905 [sym_varAssignDef]; STATE 13614 [sym_varDef;
   sym_constDef]; STATE 1281 [sym_label]; STATE 8032 [sym__expr; sym_exprConditional];
   STATE 7363 [sym__ref; sym_lambda; sym_inherited; sym_exprDot; sym_exprDeref; sym_exprAs;
   sym_exprTpl; sym_exprSubscript; sym_exprCall]; STATE 8032 [sym_exprBinary; sym_exprUnary];
   STATE 7363 [sym_exprParens; sym_exprBrackets; sym__literal; sym_literalString];
   STATE 6967 [sym__literalString; sym_literalChar]; STATE 7363 [sym_literalNumber];
   STATE 7660 [sym__literalInt; sym__literalFloat];
   STATE 1281 [aux_sym_labeledStatement_repeat1]; STATE 6967 [aux_sym_literalString_repeat1];
   ACTIONS 10832 [anon_sym_SEMI]; ACTIONS 9986 [anon_sym_LBRACK]; ACTIONS 9988 [anon_sym_LPAREN];
   ACTIONS 9990 [aux_sym__literalString_token1]; ACTIONS 9992 [anon_sym_POUND];
   ACTIONS 9994 [aux_sym__literalInt_token1]; ACTIONS 9996 [aux_sym__literalInt_token2;
   aux_sym__literalInt_token3]; ACTIONS 9994 [aux_sym__literalFloat_token1];
   ACTIONS 9998 [sym_kAdd; sym_kSub]; ACTIONS 10000 [sym_kAt]; ACTIONS 10002 [sym_kTrue;
   sym_kFalse]; ACTIONS 10004 [sym_labelNumber]; ACTIONS 3 [sym__space];
   ACTIONS 5 [sym_ppDirective]; ACTIONS 3 [sym_comment]; ACTIONS 10002 [sym_ppFragmentExpr];
   ACTIONS 9990 [sym__literalStringMultiline]; ACTIONS 10006 [sym_identifier];
   ACTIONS 10008 [sym_kSpecialize]; ACTIONS 10010 [sym_kAsm]; ACTIONS 10012 [sym_kBegin];
   ACTIONS 10014 [sym_kCase]; ACTIONS 10016 [sym_kConst]; ACTIONS 4301 [sym_kElse];
   ACTIONS 10018 [sym_kFor]; ACTIONS 10020 [sym_kFunction]; ACTIONS 10022 [sym_kGoto];
   ACTIONS 10024 [sym_kIf]; ACTIONS 10026 [sym_kInherited]; ACTIONS 10002 [sym_kNil];
   ACTIONS 10000 [sym_kNot]; ACTIONS 10020 [sym_kProcedure]; ACTIONS 10028 [sym_kRaise];
   ACTIONS 10030 [sym_kRepeat]; ACTIONS 10032 [sym_kString]; ACTIONS 10034 [sym_kTry];
   ACTIONS 10036 [sym_kVar]; ACTIONS 10038 [sym_kWhile]; ACTIONS 10040 [sym_kWith]].

(** State 1281. *)
Definition ts_parse_table_1281 : parse_row :=
  [STATE 6451 [sym_if]; STATE 6428 [sym_ifElse; sym_while; sym_repeat; sym_for; sym_foreach;
   sym_try; sym_case; sym_block; sym_asm; sym_with; sym_raise; sym_statement; sym_goto;
   sym__statement]; STATE 14724 [sym_ifTr; sym_ifElseTr; sym_whileTr; sym_repeatTr; sym_forTr;
   sym_foreachTr; sym_tryTr; sym_caseTr]; STATE 15738 [sym_blockTr]; STATE 14724 [sym_asmTr;
   sym_withTr; sym_raiseTr; sym_statementTr; sym_gotoTr; sym__statementTr];
   STATE 13614 [sym_assignment]; STATE 11905 [sym_varAssignDef]; STATE 13614 [sym_varDef;
   sym_constDef]; STATE 6187 [sym_label]; STATE 8032 [sym__expr; sym_exprConditional];
   STATE 7363 [sym__ref; sym_lambda; sym_inherited; sym_exprDot; sym_exprDeref; sym_exprAs;
   sym_exprTpl; sym_exprSubscript; sym_exprCall]; STATE 8032 [sym_exprBinary; sym_exprUnary];
   STATE 7363 [sym_exprParens; sym_exprBrackets; sym__literal; sym_literalString];
   STATE 6967 [sym__literalString; sym_literalChar]; STATE 7363 [sym_literalNumber];
   STATE 7660 [sym__literalInt; sym__literalFloat];
   STATE 6187 [aux_sym_labeledStatement_repeat1]; STATE 6967 [aux_sym_literalString_repeat1];
   ACTIONS 10834 [anon_sym_SEMI]; ACTIONS 9986 [anon_sym_LBRACK]; ACTIONS 9988 [anon_sym_LPAREN];
   ACTIONS 9990 [aux_sym__literalString_token1]; ACTIONS 9992 [anon_sym_POUND];
   ACTIONS 9994 [aux_sym__literalInt_token1]; ACTIONS 9996 [aux_sym__literalInt_token2;
   aux_sym__literalInt_token3]; ACTIONS 9994 [aux_sym__literalFloat_token1];
   ACTIONS 9998 [sym_kAdd; sym_kSub]; ACTIONS 10000 [sym_kAt]; ACTIONS 10002 [sym_kTrue;
   sym_kFalse]; ACTIONS 10004 [sym_labelNumber]; ACTIONS 3 [sym__space];
   ACTIONS 5 [sym_ppDirective]; ACTIONS 3 [sym_comment]; ACTIONS 10002 [sym_ppFragmentExpr];
   ACTIONS 9990 [sym__literalStringMultiline]; ACTIONS 10006 [sym_identifier];
   ACTIONS 10008 [sym_kSpecialize]; ACTIONS 10010 [sym_kAsm]; ACTIONS 10012 [sym_kBegin];
   ACTIONS 10014 [sym_kCase]; ACTIONS 10016 [sym_kConst]; ACTIONS 4439 [sym_kElse];
   ACTIONS 10018 [sym_kFor]; ACTIONS 10020 [sym_kFunction]; ACTIONS 10022 [sym_kGoto];
   ACTIONS 10024 [sym_kIf]; ACTIONS 10026 [sym_kInherited]; ACTIONS 10002 [sym_kNil];
   ACTIONS 10000 [sym_kNot]; ACTIONS 10020 [sym_kProcedure]; ACTIONS 10028 [sym_kRaise];
   ACTIONS 10030 [sym_kRepeat]; ACTIONS 10032 [sym_kString]; ACTIONS 10034 [sym_kTry];
   ACTIONS 10036 [sym_kVar]; ACTIONS 10038 [sym_kWhile]; ACTIONS 10040 [sym_kWith]].

(** State 1282. *)
Definition ts_parse_table_1282 : parse_row :=
  [STATE 14637 [sym_if]; STATE 15663 [sym_ifElse; sym_while; sym_repeat; sym_for; sym_foreach;
   sym_try; sym_case; sym_block; sym_asm; sym_with; sym_raise; sym_statement; sym_goto;
   sym__statement]; STATE 15037 [sym_ifTr; sym_ifElseTr; sym_whileTr; sym_repeatTr; sym_forTr;
   sym_foreachTr; sym_tryTr; sym_caseTr]; STATE 15738 [sym_blockTr]; STATE 15037 [sym_asmTr;
   sym_withTr; sym_raiseTr; sym_statementTr; sym_gotoTr; sym__statementTr];
   STATE 13492 [sym_assignment]; STATE 11905 [sym_varAssignDef]; STATE 13492 [sym_varDef;
   sym_constDef]; STATE 1212 [sym_label]; STATE 7925 [sym__expr; sym_exprConditional];
   STATE 7363 [sym__ref; sym_lambda; sym_inherited; sym_exprDot; sym_exprDeref; sym_exprAs;
   sym_exprTpl; sym_exprSubscript; sym_exprCall]; STATE 7925 [sym_exprBinary; sym_exprUnary];
   STATE 7363 [sym_exprParens; sym_exprBrackets; sym__literal; sym_literalString];
   STATE 6967 [sym__literalString; sym_literalChar]; STATE 7363 [sym_literalNumber];
   STATE 7660 [sym__literalInt; sym__literalFloat];
   STATE 1212 [aux_sym_labeledStatement_repeat1]; STATE 6967 [aux_sym_literalString_repeat1];
   ACTIONS 10836 [anon_sym_SEMI]; ACTIONS 9986 [anon_sym_LBRACK]; ACTIONS 9988 [anon_sym_LPAREN];
   ACTIONS 9990 [aux_sym__literalString_token1]; ACTIONS 9992 [anon_sym_POUND];
   ACTIONS 9994 [aux_sym__literalInt_token1]; ACTIONS 9996 [aux_sym__literalInt_token2;
   aux_sym__literalInt_token3]; ACTIONS 9994 [aux_sym__literalFloat_token1];
   ACTIONS 9998 [sym_kAdd; sym_kSub]; ACTIONS 10000 [sym_kAt]; ACTIONS 10002 [sym_kTrue;
   sym_kFalse]; ACTIONS 10004 [sym_labelNumber]; ACTIONS 3 [sym__space];
   ACTIONS 5 [sym_ppDirective]; ACTIONS 3 [sym_comment]; ACTIONS 10002 [sym_ppFragmentExpr];
   ACTIONS 9990 [sym__literalStringMultiline]; ACTIONS 10006 [sym_identifier];
   ACTIONS 10008 [sym_kSpecialize]; ACTIONS 10108 [sym_kAsm]; ACTIONS 10110 [sym_kBegin];
   ACTIONS 10112 [sym_kCase]; ACTIONS 10016 [sym_kConst]; ACTIONS 4301 [sym_kElse];
   ACTIONS 10116 [sym_kFor]; ACTIONS 10020 [sym_kFunction]; ACTIONS 10118 [sym_kGoto];
   ACTIONS 10228 [sym_kIf]; ACTIONS 10026 [sym_kInherited]; ACTIONS 10002 [sym_kNil];
   ACTIONS 10000 [sym_kNot]; ACTIONS 10020 [sym_kProcedure]; ACTIONS 10122 [sym_kRaise];
   ACTIONS 10124 [sym_kRepeat]; ACTIONS 10032 [sym_kString]; ACTIONS 10126 [sym_kTry];
   ACTIONS 10036 [sym_kVar]; ACTIONS 10128 [sym_kWhile]; ACTIONS 10130 [sym_kWith]].

(** State 1283. *)
Definition ts_parse_table_1283 : parse_row :=
  [STATE 9071 [sym_if]; STATE 9195 [sym_ifElse; sym_while; sym_repeat; sym_for; sym_foreach;
   sym_try; sym_case; sym_block; sym_asm; sym_with; sym_raise; sym_statement; sym_goto;
   sym__statement]; STATE 15037 [sym_ifTr; sym_ifElseTr; sym_whileTr; sym_repeatTr; sym_forTr;
   sym_foreachTr; sym_tryTr; sym_caseTr]; STATE 15738 [sym_blockTr]; STATE 15037 [sym_asmTr;
   sym_withTr; sym_raiseTr; sym_statementTr; sym_gotoTr; sym__statementTr];
   STATE 13921 [sym_assignment]; STATE 11905 [sym_varAssignDef]; STATE 13921 [sym_varDef;
   sym_constDef]; STATE 1219 [sym_label]; STATE 8114 [sym__expr; sym_exprConditional];
   STATE 7363 [sym__ref; sym_lambda; sym_inherited; sym_exprDot; sym_exprDeref; sym_exprAs;
   sym_exprTpl; sym_exprSubscript; sym_exprCall]; STATE 8114 [sym_exprBinary; sym_exprUnary];
   STATE 7363 [sym_exprParens; sym_exprBrackets; sym__literal; sym_literalString];
   STATE 6967 [sym__literalString; sym_literalChar]; STATE 7363 [sym_literalNumber];
   STATE 7660 [sym__literalInt; sym__literalFloat];
   STATE 1219 [aux_sym_labeledStatement_repeat1]; STATE 6967 [aux_sym_literalString_repeat1];
   ACTIONS 9970 [anon_sym_SEMI]; ACTIONS 9986 [anon_sym_LBRACK]; ACTIONS 9988 [anon_sym_LPAREN];
   ACTIONS 9990 [aux_sym__literalString_token1]; ACTIONS 9992 [anon_sym_POUND];
   ACTIONS 9994 [aux_sym__literalInt_token1]; ACTIONS 9996 [aux_sym__literalInt_token2;
   aux_sym__literalInt_token3]; ACTIONS 9994 [aux_sym__literalFloat_token1];
   ACTIONS 9998 [sym_kAdd; sym_kSub]; ACTIONS 10000 [sym_kAt]; ACTIONS 10002 [sym_kTrue;
   sym_kFalse]; ACTIONS 10004 [sym_labelNumber]; ACTIONS 3 [sym__space];
   ACTIONS 5 [sym_ppDirective]; ACTIONS 3 [sym_comment]; ACTIONS 10002 [sym_ppFragmentExpr];
   ACTIONS 9990 [sym__literalStringMultiline]; ACTIONS 10006 [sym_identifier];
   ACTIONS 10008 [sym_kSpecialize]; ACTIONS 10236 [sym_kAsm]; ACTIONS 10238 [sym_kBegin];
   ACTIONS 10240 [sym_kCase]; ACTIONS 10016 [sym_kConst]; ACTIONS 4301 [sym_kElse];
   ACTIONS 10244 [sym_kFor]; ACTIONS 10020 [sym_kFunction]; ACTIONS 10246 [sym_kGoto];
   ACTIONS 10248 [sym_kIf]; ACTIONS 10026 [sym_kInherited]; ACTIONS 10002 [sym_kNil];
   ACTIONS 10000 [sym_kNot]; ACTIONS 10020 [sym_kProcedure]; ACTIONS 10250 [sym_kRaise];
   ACTIONS 10252 [sym_kRepeat]; ACTIONS 10032 [sym_kString]; ACTIONS 10254 [sym_kTry];
   ACTIONS 10036 [sym_kVar]; ACTIONS 10256 [sym_kWhile]; ACTIONS 10258 [sym_kWith]].

(** State 1284. *)
Definition ts_parse_table_1284 : parse_row :=
  [ACTIONS 10838 [anon_sym_SEMI; anon_sym_COMMA; anon_sym_LBRACK];
   ACTIONS 10840 [anon_sym_LPAREN]; ACTIONS 10838 [aux_sym__literalString_token1;
   anon_sym_POUND]; ACTIONS 10840 [aux_sym__literalInt_token1];
   ACTIONS 10838 [aux_sym__literalInt_token2; aux_sym__literalInt_token3];
   ACTIONS 10840 [aux_sym__literalFloat_token1]; ACTIONS 10838 [aux_sym_ppUsesBlock_token1;
   aux_sym_ppUsesBlock_token2; aux_sym_ppUsesBlock_token3]; ACTIONS 10840 [sym_kAdd; sym_kSub];
   ACTIONS 10838 [sym_kAt; sym_kTrue; sym_kFalse]; ACTIONS 3 [sym__space];
   ACTIONS 5 [sym_ppDirective]; ACTIONS 3 [sym_comment]; ACTIONS 10838 [sym_ppFragmentExpr;
   sym__literalStringMultiline; sym_identifier; sym_kDefault; sym_kNodefault; sym_kDispId;
   sym_kGeneric; sym_kSpecialize; sym_kOperator; sym_kPublic; sym_kStatic; sym_kVirtual;
   sym_kAbstract; sym_kDynamic; sym_kOverride; sym_kOverload; sym_kReintroduce; sym_kStdcall;
   sym_kCdecl; sym_kCppdecl; sym_kPascal; sym_kRegister; sym_kMwpascal; sym_kMessage;
   sym_kDeprecated; sym_kExperimental; sym_kPlatform; sym_kUnimplemented; sym_kCvar; sym_kExport;
   sym_kFar; sym_kNear; sym_kSafecall; sym_kAssembler; sym_kNostackframe; sym_kInterrupt;
   sym_kNoreturn; sym_kIocheck; sym_kLocal; sym_kHardfloat; sym_kSoftfloat; sym_kMs_abi_default;
   sym_kMs_abi_cdecl; sym_kSaveregisters; sym_kSysv_abi_default; sym_kSysv_abi_cdecl;
   sym_kVectorcall; sym_kVarargs; sym_kWinapi; sym_kAlias; sym_kAsm; sym_kBegin; sym_kCase;
   sym_kClass; sym_kConst; sym_kConstructor; sym_kDestructor; sym_kElse; sym_kExports; sym_kFor;
   sym_kFunction; sym_kGoto; sym_kIf; sym_kInherited; sym_kLabel; sym_kNil; sym_kNot;
   sym_kProcedure; sym_kProperty; sym_kRaise; sym_kRepeat; sym_kResourcestring; sym_kString;
   sym_kThreadvar; sym_kTry; sym_kType; sym_kUses; sym_kVar; sym_kWhile; sym_kWith]].

(** State 1285. *)
Definition ts_parse_table_1285 : parse_row :=
  [ACTIONS 10842 [anon_sym_SEMI; anon_sym_COMMA; anon_sym_LBRACK];
   ACTIONS 10844 [anon_sym_LPAREN]; ACTIONS 10842 [aux_sym__literalString_token1;
   anon_sym_POUND]; ACTIONS 10844 [aux_sym__literalInt_token1];
   ACTIONS 10842 [aux_sym__literalInt_token2; aux_sym__literalInt_token3];
   ACTIONS 10844 [aux_sym__literalFloat_token1]; ACTIONS 10842 [aux_sym_ppUsesBlock_token1;
   aux_sym_ppUsesBlock_token2; aux_sym_ppUsesBlock_token3]; ACTIONS 10844 [sym_kAdd; sym_kSub];
   ACTIONS 10842 [sym_kAt; sym_kTrue; sym_kFalse]; ACTIONS 3 [sym__space];
   ACTIONS 5 [sym_ppDirective]; ACTIONS 3 [sym_comment]; ACTIONS 10842 [sym_ppFragmentExpr;
   sym__literalStringMultiline; sym_identifier; sym_kDefault; sym_kNodefault; sym_kDispId;
   sym_kGeneric; sym_kSpecialize; sym_kOperator; sym_kPublic; sym_kStatic; sym_kVirtual;
   sym_kAbstract; sym_kDynamic; sym_kOverride; sym_kOverload; sym_kReintroduce; sym_kStdcall;
   sym_kCdecl; sym_kCppdecl; sym_kPascal; sym_kRegister; sym_kMwpascal; sym_kMessage;
   sym_kDeprecated; sym_kExperimental; sym_kPlatform; sym_kUnimplemented; sym_kCvar; sym_kExport;
   sym_kFar; sym_kNear; sym_kSafecall; sym_kAssembler; sym_kNostackframe; sym_kInterrupt;
   sym_kNoreturn; sym_kIocheck; sym_kLocal; sym_kHardfloat; sym_kSoftfloat; sym_kMs_abi_default;
   sym_kMs_abi_cdecl; sym_kSaveregisters; sym_kSysv_abi_default; sym_kSysv_abi_cdecl;
   sym_kVectorcall; sym_kVarargs; sym_kWinapi; sym_kAlias; sym_kAsm; sym_kBegin; sym_kCase;
   sym_kClass; sym_kConst; sym_kConstructor; sym_kDestructor; sym_kElse; sym_kExports; sym_kFor;
   sym_kFunction; sym_kGoto; sym_kIf; sym_kInherited; sym_kLabel; sym_kNil; sym_kNot;
   sym_kProcedure; sym_kProperty; sym_kRaise; sym_kRepeat; sym_kResourcestring; sym_kString;
   sym_kThreadvar; sym_kTry; sym_kType; sym_kUses; sym_kVar; sym_kWhile; sym_kWith]].

(** State 1286. *)
Definition ts_parse_table_1286 : parse_row :=
  [ACTIONS 10846 [anon_sym_SEMI; anon_sym_COMMA; anon_sym_LBRACK];
   ACTIONS 10848 [anon_sym_LPAREN]; ACTIONS 10846 [aux_sym__literalString_token1;
   anon_sym_POUND]; ACTIONS 10848 [aux_sym__literalInt_token1];
   ACTIONS 10846 [aux_sym__literalInt_token2; aux_sym__literalInt_token3];
   ACTIONS 10848 [aux_sym__literalFloat_token1]; ACTIONS 10846 [aux_sym_ppUsesBlock_token1;
   aux_sym_ppUsesBlock_token2; aux_sym_ppUsesBlock_token3]; ACTIONS 10848 [sym_kAdd; sym_kSub];
   ACTIONS 10846 [sym_kAt; sym_kTrue; sym_kFalse]; ACTIONS 3 [sym__space];
   ACTIONS 5 [sym_ppDirective]; ACTIONS 3 [sym_comment]; ACTIONS 10846 [sym_ppFragmentExpr;
   sym__literalStringMultiline; sym_identifier; sym_kDefault; sym_kNodefault; sym_kDispId;
   sym_kGeneric; sym_kSpecialize; sym_kOperator; sym_kPublic; sym_kStatic; sym_kVirtual;
   sym_kAbstract; sym_kDynamic; sym_kOverride; sym_kOverload; sym_kReintroduce; sym_kStdcall;
   sym_kCdecl; sym_kCppdecl; sym_kPascal; sym_kRegister; sym_kMwpascal; sym_kMessage;
   sym_kDeprecated; sym_kExperimental; sym_kPlatform; sym_kUnimplemented; sym_kCvar; sym_kExport;
   sym_kFar; sym_kNear; sym_kSafecall; sym_kAssembler; sym_kNostackframe; sym_kInterrupt;
   sym_kNoreturn; sym_kIocheck; sym_kLocal; sym_kHardfloat; sym_kSoftfloat; sym_kMs_abi_default;
   sym_kMs_abi_cdecl; sym_kSaveregisters; sym_kSysv_abi_default; sym_kSysv_abi_cdecl;
   sym_kVectorcall; sym_kVarargs; sym_kWinapi; sym_kAlias; sym_kAsm; sym_kBegin; sym_kCase;
   sym_kClass; sym_kConst; sym_kConstructor; sym_kDestructor; sym_kElse; sym_kExports; sym_kFor;
   sym_kFunction; sym_kGoto; sym_kIf; sym_kInherited; sym_kLabel; sym_kNil; sym_kNot;
   sym_kProcedure; sym_kProperty; sym_kRaise; sym_kRepeat; sym_kResourcestring; sym_kString;
   sym_kThreadvar; sym_kTry; sym_kType; sym_kUses; sym_kVar; sym_kWhile; sym_kWith]].

(** State 1287. *)
Definition ts_parse_table_1287 : parse_row :=
  [ACTIONS 10622 [anon_sym_SEMI; anon_sym_COMMA; anon_sym_LBRACK];
   ACTIONS 10624 [anon_sym_LPAREN]; ACTIONS 10622 [aux_sym__literalString_token1;
   anon_sym_POUND]; ACTIONS 10624 [aux_sym__literalInt_token1];
   ACTIONS 10622 [aux_sym__literalInt_token2; aux_sym__literalInt_token3];
   ACTIONS 10624 [aux_sym__literalFloat_token1]; ACTIONS 10622 [aux_sym_ppUsesBlock_token1;
   aux_sym_ppUsesBlock_token2; aux_sym_ppUsesBlock_token3]; ACTIONS 10624 [sym_kAdd; sym_kSub];
   ACTIONS 10622 [sym_kAt; sym_kTrue; sym_kFalse]; ACTIONS 3 [sym__space];
   ACTIONS 5 [sym_ppDirective]; ACTIONS 3 [sym_comment]; ACTIONS 10622 [sym_ppFragmentExpr;
   sym__literalStringMultiline; sym_identifier; sym_kDefault; sym_kNodefault; sym_kDispId;
   sym_kGeneric; sym_kSpecialize; sym_kOperator; sym_kPublic; sym_kStatic; sym_kVirtual;
   sym_kAbstract; sym_kDynamic; sym_kOverride; sym_kOverload; sym_kReintroduce; sym_kStdcall;
   sym_kCdecl; sym_kCppdecl; sym_kPascal; sym_kRegister; sym_kMwpascal; sym_kMessage;
   sym_kDeprecated; sym_kExperimental; sym_kPlatform; sym_kUnimplemented; sym_kCvar; sym_kExport;
   sym_kFar; sym_kNear; sym_kSafecall; sym_kAssembler; sym_kNostackframe; sym_kInterrupt;
   sym_kNoreturn; sym_kIocheck; sym_kLocal; sym_kHardfloat; sym_kSoftfloat; sym_kMs_abi_default;
   sym_kMs_abi_cdecl; sym_kSaveregisters; sym_kSysv_abi_default; sym_kSysv_abi_cdecl;
   sym_kVectorcall; sym_kVarargs; sym_kWinapi; sym_kAlias; sym_kAsm; sym_kBegin; sym_kCase;
   sym_kClass; sym_kConst; sym_kConstructor; sym_kDestructor; sym_kExports; sym_kFor;
   sym_kFunction; sym_kGoto; sym_kIf; sym_kInherited; sym_kInline; sym_kLabel; sym_kNil;
   sym_kNot; sym_kProcedure; sym_kProperty; sym_kRaise; sym_kRepeat; sym_kResourcestring;
   sym_kString; sym_kThreadvar; sym_kTry; sym_kType; sym_kUses; sym_kVar; sym_kWhile; sym_kWith]].

(** State 1288. *)
Definition ts_parse_table_1288 : parse_row :=
  [ACTIONS 10850 [anon_sym_SEMI; anon_sym_COMMA; anon_sym_LBRACK];
   ACTIONS 10852 [anon_sym_LPAREN]; ACTIONS 10850 [aux_sym__literalString_token1;
   anon_sym_POUND]; ACTIONS 10852 [aux_sym__literalInt_token1];
   ACTIONS 10850 [aux_sym__literalInt_token2; aux_sym__literalInt_token3];
   ACTIONS 10852 [aux_sym__literalFloat_token1]; ACTIONS 10850 [aux_sym_ppUsesBlock_token1;
   aux_sym_ppUsesBlock_token2; aux_sym_ppUsesBlock_token3]; ACTIONS 10852 [sym_kAdd; sym_kSub];
   ACTIONS 10850 [sym_kAt; sym_kTrue; sym_kFalse]; ACTIONS 3 [sym__space];
   ACTIONS 5 [sym_ppDirective]; ACTIONS 3 [sym_comment]; ACTIONS 10850 [sym_ppFragmentExpr;
   sym__literalStringMultiline; sym_identifier; sym_kDefault; sym_kNodefault; sym_kDispId;
   sym_kGeneric; sym_kSpecialize; sym_kOperator; sym_kPublic; sym_kStatic; sym_kVirtual;
   sym_kAbstract; sym_kDynamic; sym_kOverride; sym_kOverload; sym_kReintroduce; sym_kStdcall;
   sym_kCdecl; sym_kCppdecl; sym_kPascal; sym_kRegister; sym_kMwpascal; sym_kMessage;
   sym_kDeprecated; sym_kExperimental; sym_kPlatform; sym_kUnimplemented; sym_kCvar; sym_kExport;
   sym_kFar; sym_kNear; sym_kSafecall; sym_kAssembler; sym_kNostackframe; sym_kInterrupt;
   sym_kNoreturn; sym_kIocheck; sym_kLocal; sym_kHardfloat; sym_kSoftfloat; sym_kMs_abi_default;
   sym_kMs_abi_cdecl; sym_kSaveregisters; sym_kSysv_abi_default; sym_kSysv_abi_cdecl;
   sym_kVectorcall; sym_kVarargs; sym_kWinapi; sym_kAlias; sym_kAsm; sym_kBegin; sym_kCase;
   sym_kClass; sym_kConst; sym_kConstructor; sym_kDestructor; sym_kElse; sym_kExports; sym_kFor;
   sym_kFunction; sym_kGoto; sym_kIf; sym_kInherited; sym_kLabel; sym_kNil; sym_kNot;
   sym_kProcedure; sym_kProperty; sym_kRaise; sym_kRepeat; sym_kResourcestring; sym_kString;
   sym_kThreadvar; sym_kTry; sym_kType; sym_kUses; sym_kVar; sym_kWhile; sym_kWith]].

(** State 1289. *)
Definition ts_parse_table_1289 : parse_row :=
  [ACTIONS 10854 [anon_sym_SEMI; anon_sym_COMMA; anon_sym_LBRACK];
   ACTIONS 10856 [anon_sym_LPAREN]; ACTIONS 10854 [aux_sym__literalString_token1;
   anon_sym_POUND]; ACTIONS 10856 [aux_sym__literalInt_token1];
   ACTIONS 10854 [aux_sym__literalInt_token2; aux_sym__literalInt_token3];
   ACTIONS 10856 [aux_sym__literalFloat_token1]; ACTIONS 10854 [aux_sym_ppUsesBlock_token1;
   aux_sym_ppUsesBlock_token2; aux_sym_ppUsesBlock_token3]; ACTIONS 10856 [sym_kAdd; sym_kSub];
   ACTIONS 10854 [sym_kAt; sym_kTrue; sym_kFalse]; ACTIONS 3 [sym__space];
   ACTIONS 5 [sym_ppDirective]; ACTIONS 3 [sym_comment]; ACTIONS 10854 [sym_ppFragmentExpr;
   sym__literalStringMultiline; sym_identifier; sym_kDefault; sym_kNodefault; sym_kDispId;
   sym_kGeneric; sym_kSpecialize; sym_kOperator; sym_kPublic; sym_kStatic; sym_kVirtual;
   sym_kAbstract; sym_kDynamic; sym_kOverride; sym_kOverload; sym_kReintroduce; sym_kStdcall;
   sym_kCdecl; sym_kCppdecl; sym_kPascal; sym_kRegister; sym_kMwpascal; sym_kMessage;
   sym_kDeprecated; sym_kExperimental; sym_kPlatform; sym_kUnimplemented; sym_kCvar; sym_kExport;
   sym_kFar; sym_kNear; sym_kSafecall; sym_kAssembler; sym_kNostackframe; sym_kInterrupt;
   sym_kNoreturn; sym_kIocheck; sym_kLocal; sym_kHardfloat; sym_kSoftfloat; sym_kMs_abi_default;
   sym_kMs_abi_cdecl; sym_kSaveregisters; sym_kSysv_abi_default; sym_kSysv_abi_cdecl;
   sym_kVectorcall; sym_kVarargs; sym_kWinapi; sym_kAlias; sym_kAsm; sym_kBegin; sym_kCase;
   sym_kClass; sym_kConst; sym_kConstructor; sym_kDestructor; sym_kElse; sym_kExports; sym_kFor;
   sym_kFunction; sym_kGoto; sym_kIf; sym_kInherited; sym_kLabel; sym_kNil; sym_kNot;
   sym_kProcedure; sym_kProperty; sym_kRaise; sym_kRepeat; sym_kResourcestring; sym_kString;
   sym_kThreadvar; sym_kTry; sym_kType; sym_kUses; sym_kVar; sym_kWhile; sym_kWith]].

(** State 1290. *)
Definition ts_parse_table_1290 : parse_row :=
  [ACTIONS 10858 [anon_sym_SEMI; anon_sym_COMMA; anon_sym_LBRACK];
   ACTIONS 10860 [anon_sym_LPAREN]; ACTIONS 10858 [aux_sym__literalString_token1;
   anon_sym_POUND]; ACTIONS 10860 [aux_sym__literalInt_token1];
   ACTIONS 10858 [aux_sym__literalInt_token2; aux_sym__literalInt_token3];
   ACTIONS 10860 [aux_sym__literalFloat_token1]; ACTIONS 10858 [aux_sym_ppUsesBlock_token1;
   aux_sym_ppUsesBlock_token2; aux_sym_ppUsesBlock_token3]; ACTIONS 10860 [sym_kAdd; sym_kSub];
   ACTIONS 10858 [sym_kAt; sym_kTrue; sym_kFalse]; ACTIONS 3 [sym__space];
   ACTIONS 5 [sym_ppDirective]; ACTIONS 3 [sym_comment]; ACTIONS 10858 [sym_ppFragmentExpr;
   sym__literalStringMultiline; sym_identifier; sym_kDefault; sym_kNodefault; sym_kDispId;
   sym_kGeneric; sym_kSpecialize; sym_kOperator; sym_kPublic; sym_kStatic; sym_kVirtual;
   sym_kAbstract; sym_kDynamic; sym_kOverride; sym_kOverload; sym_kReintroduce; sym_kStdcall;
   sym_kCdecl; sym_kCppdecl; sym_kPascal; sym_kRegister; sym_kMwpascal; sym_kMessage;
   sym_kDeprecated; sym_kExperimental; sym_kPlatform; sym_kUnimplemented; sym_kCvar; sym_kExport;
   sym_kFar; sym_kNear; sym_kSafecall; sym_kAssembler; sym_kNostackframe; sym_kInterrupt;
   sym_kNoreturn; sym_kIocheck; sym_kLocal; sym_kHardfloat; sym_kSoftfloat; sym_kMs_abi_default;
   sym_kMs_abi_cdecl; sym_kSaveregisters; sym_kSysv_abi_default; sym_kSysv_abi_cdecl;
   sym_kVectorcall; sym_kVarargs; sym_kWinapi; sym_kAlias; sym_kAsm; sym_kBegin; sym_kCase;
   sym_kClass; sym_kConst; sym_kConstructor; sym_kDestructor; sym_kElse; sym_kExports; sym_kFor;
   sym_kFunction; sym_kGoto; sym_kIf; sym_kInherited; sym_kLabel; sym_kNil; sym_kNot;
   sym_kProcedure; sym_kProperty; sym_kRaise; sym_kRepeat; sym_kResourcestring; sym_kString;
   sym_kThreadvar; sym_kTry; sym_kType; sym_kUses; sym_kVar; sym_kWhile; sym_kWith]].

(** State 1291. *)
Definition ts_parse_table_1291 : parse_row :=
  [ACTIONS 10862 [anon_sym_SEMI; anon_sym_COMMA; anon_sym_LBRACK];
   ACTIONS 10864 [anon_sym_LPAREN]; ACTIONS 10862 [aux_sym__literalString_token1;
   anon_sym_POUND]; ACTIONS 10864 [aux_sym__literalInt_token1];
   ACTIONS 10862 [aux_sym__literalInt_token2; aux_sym__literalInt_token3];
   ACTIONS 10864 [aux_sym__literalFloat_token1]; ACTIONS 10862 [aux_sym_ppUsesBlock_token1;
   aux_sym_ppUsesBlock_token2; aux_sym_ppUsesBlock_token3]; ACTIONS 10864 [sym_kAdd; sym_kSub];
   ACTIONS 10862 [sym_kAt; sym_kTrue; sym_kFalse]; ACTIONS 3 [sym__space];
   ACTIONS 5 [sym_ppDirective]; ACTIONS 3 [sym_comment]; ACTIONS 10862 [sym_ppFragmentExpr;
   sym__literalStringMultiline; sym_identifier; sym_kDefault; sym_kNodefault; sym_kDispId;
   sym_kGeneric; sym_kSpecialize; sym_kOperator; sym_kPublic; sym_kStatic; sym_kVirtual;
   sym_kAbstract; sym_kDynamic; sym_kOverride; sym_kOverload; sym_kReintroduce; sym_kStdcall;
   sym_kCdecl; sym_kCppdecl; sym_kPascal; sym_kRegister; sym_kMwpascal; sym_kMessage;
   sym_kDeprecated; sym_kExperimental; sym_kPlatform; sym_kUnimplemented; sym_kCvar; sym_kExport;
   sym_kFar; sym_kNear; sym_kSafecall; sym_kAssembler; sym_kNostackframe; sym_kInterrupt;
   sym_kNoreturn; sym_kIocheck; sym_kLocal; sym_kHardfloat; sym_kSoftfloat; sym_kMs_abi_default;
   sym_kMs_abi_cdecl; sym_kSaveregisters; sym_kSysv_abi_default; sym_kSysv_abi_cdecl;
   sym_kVectorcall; sym_kVarargs; sym_kWinapi; sym_kAlias; sym_kAsm; sym_kBegin; sym_kCase;
   sym_kClass; sym_kConst; sym_kConstructor; sym_kDestructor; sym_kElse; sym_kExports; sym_kFor;
   sym_kFunction; sym_kGoto; sym_kIf; sym_kInherited; sym_kLabel; sym_kNil; sym_kNot;
   sym_kProcedure; sym_kProperty; sym_kRaise; sym_kRepeat; sym_kResourcestring; sym_kString;
   sym_kThreadvar; sym_kTry; sym_kType; sym_kUses; sym_kVar; sym_kWhile; sym_kWith]].

(** State 1292. *)
Definition ts_parse_table_1292 : parse_row :=
  [ACTIONS 10866 [anon_sym_SEMI; anon_sym_COMMA; anon_sym_LBRACK];
   ACTIONS 10868 [anon_sym_LPAREN]; ACTIONS 10866 [aux_sym__literalString_token1;
   anon_sym_POUND]; ACTIONS 10868 [aux_sym__literalInt_token1];
   ACTIONS 10866 [aux_sym__literalInt_token2; aux_sym__literalInt_token3];
   ACTIONS 10868 [aux_sym__literalFloat_token1]; ACTIONS 10866 [aux_sym_ppUsesBlock_token1;
   aux_sym_ppUsesBlock_token2; aux_sym_ppUsesBlock_token3]; ACTIONS 10868 [sym_kAdd; sym_kSub];
   ACTIONS 10866 [sym_kAt; sym_kTrue; sym_kFalse]; ACTIONS 3 [sym__space];
   ACTIONS 5 [sym_ppDirective]; ACTIONS 3 [sym_comment]; ACTIONS 10866 [sym_ppFragmentExpr;
   sym__literalStringMultiline; sym_identifier; sym_kDefault; sym_kNodefault; sym_kDispId;
   sym_kGeneric; sym_kSpecialize; sym_kOperator; sym_kPublic; sym_kStatic; sym_kVirtual;
   sym_kAbstract; sym_kDynamic; sym_kOverride; sym_kOverload; sym_kReintroduce; sym_kStdcall;
   sym_kCdecl; sym_kCppdecl; sym_kPascal; sym_kRegister; sym_kMwpascal; sym_kMessage;
   sym_kDeprecated; sym_kExperimental; sym_kPlatform; sym_kUnimplemented; sym_kCvar; sym_kExport;
   sym_kFar; sym_kNear; sym_kSafecall; sym_kAssembler; sym_kNostackframe; sym_kInterrupt;
   sym_kNoreturn; sym_kIocheck; sym_kLocal; sym_kHardfloat; sym_kSoftfloat; sym_kMs_abi_default;
   sym_kMs_abi_cdecl; sym_kSaveregisters; sym_kSysv_abi_default; sym_kSysv_abi_cdecl;
   sym_kVectorcall; sym_kVarargs; sym_kWinapi; sym_kAlias; sym_kAsm; sym_kBegin; sym_kCase;
   sym_kClass; sym_kConst; sym_kConstructor; sym_kDestructor; sym_kElse; sym_kExports; sym_kFor;
   sym_kFunction; sym_kGoto; sym_kIf; sym_kInherited; sym_kLabel; sym_kNil; sym_kNot;
   sym_kProcedure; sym_kProperty; sym_kRaise; sym_kRepeat; sym_kResourcestring; sym_kString;
   sym_kThreadvar; sym_kTry; sym_kType; sym_kUses; sym_kVar; sym_kWhile; sym_kWith]].

(** State 1293. *)
Definition ts_parse_table_1293 : parse_row :=
  [ACTIONS 10870 [anon_sym_SEMI; anon_sym_COMMA; anon_sym_LBRACK];
   ACTIONS 10872 [anon_sym_LPAREN]; ACTIONS 10870 [aux_sym__literalString_token1;
   anon_sym_POUND]; ACTIONS 10872 [aux_sym__literalInt_token1];
   ACTIONS 10870 [aux_sym__literalInt_token2; aux_sym__literalInt_token3];
   ACTIONS 10872 [aux_sym__literalFloat_token1]; ACTIONS 10870 [aux_sym_ppUsesBlock_token1;
   aux_sym_ppUsesBlock_token2; aux_sym_ppUsesBlock_token3]; ACTIONS 10872 [sym_kAdd; sym_kSub];
   ACTIONS 10870 [sym_kAt; sym_kTrue; sym_kFalse]; ACTIONS 3 [sym__space];
   ACTIONS 5 [sym_ppDirective]; ACTIONS 3 [sym_comment]; ACTIONS 10870 [sym_ppFragmentExpr;
   sym__literalStringMultiline; sym_identifier; sym_kDefault; sym_kNodefault; sym_kDispId;
   sym_kGeneric; sym_kSpecialize; sym_kOperator; sym_kPublic; sym_kStatic; sym_kVirtual;
   sym_kAbstract; sym_kDynamic; sym_kOverride; sym_kOverload; sym_kReintroduce; sym_kStdcall;
   sym_kCdecl; sym_kCppdecl; sym_kPascal; sym_kRegister; sym_kMwpascal; sym_kMessage;
   sym_kDeprecated; sym_kExperimental; sym_kPlatform; sym_kUnimplemented; sym_kCvar; sym_kExport;
   sym_kFar; sym_kNear; sym_kSafecall; sym_kAssembler; sym_kNostackframe; sym_kInterrupt;
   sym_kNoreturn; sym_kIocheck; sym_kLocal; sym_kHardfloat; sym_kSoftfloat; sym_kMs_abi_default;
   sym_kMs_abi_cdecl; sym_kSaveregisters; sym_kSysv_abi_default; sym_kSysv_abi_cdecl;
   sym_kVectorcall; sym_kVarargs; sym_kWinapi; sym_kAlias; sym_kAsm; sym_kBegin; sym_kCase;
   sym_kClass; sym_kConst; sym_kConstructor; sym_kDestructor; sym_kElse; sym_kExports; sym_kFor;
   sym_kFunction; sym_kGoto; sym_kIf; sym_kInherited; sym_kLabel; sym_kNil; sym_kNot;
   sym_kProcedure; sym_kProperty; sym_kRaise; sym_kRepeat; sym_kResourcestring; sym_kString;
   sym_kThreadvar; sym_kTry; sym_kType; sym_kUses; sym_kVar; sym_kWhile; sym_kWith]].

(** State 1294. *)
Definition ts_parse_table_1294 : parse_row :=
  [ACTIONS 10874 [anon_sym_SEMI; anon_sym_COMMA; anon_sym_LBRACK];
   ACTIONS 10876 [anon_sym_LPAREN]; ACTIONS 10874 [aux_sym__literalString_token1;
   anon_sym_POUND]; ACTIONS 10876 [aux_sym__literalInt_token1];
   ACTIONS 10874 [aux_sym__literalInt_token2; aux_sym__literalInt_token3];
   ACTIONS 10876 [aux_sym__literalFloat_token1]; ACTIONS 10874 [aux_sym_ppUsesBlock_token1;
   aux_sym_ppUsesBlock_token2; aux_sym_ppUsesBlock_token3]; ACTIONS 10876 [sym_kAdd; sym_kSub];
   ACTIONS 10874 [sym_kAt; sym_kTrue; sym_kFalse]; ACTIONS 3 [sym__space];
   ACTIONS 5 [sym_ppDirective]; ACTIONS 3 [sym_comment]; ACTIONS 10874 [sym_ppFragmentExpr;
   sym__literalStringMultiline; sym_identifier; sym_kDefault; sym_kNodefault; sym_kDispId;
   sym_kGeneric; sym_kSpecialize; sym_kOperator; sym_kPublic; sym_kStatic; sym_kVirtual;
   sym_kAbstract; sym_kDynamic; sym_kOverride; sym_kOverload; sym_kReintroduce; sym_kStdcall;
   sym_kCdecl; sym_kCppdecl; sym_kPascal; sym_kRegister; sym_kMwpascal; sym_kMessage;
   sym_kDeprecated; sym_kExperimental; sym_kPlatform; sym_kUnimplemented; sym_kCvar; sym_kExport;
   sym_kFar; sym_kNear; sym_kSafecall; sym_kAssembler; sym_kNostackframe; sym_kInterrupt;
   sym_kNoreturn; sym_kIocheck; sym_kLocal; sym_kHardfloat; sym_kSoftfloat; sym_kMs_abi_default;
   sym_kMs_abi_cdecl; sym_kSaveregisters; sym_kSysv_abi_default; sym_kSysv_abi_cdecl;
   sym_kVectorcall; sym_kVarargs; sym_kWinapi; sym_kAlias; sym_kAsm; sym_kBegin; sym_kCase;
   sym_kClass; sym_kConst; sym_kConstructor; sym_kDestructor; sym_kElse; sym_kExports; sym_kFor;
   sym_kFunction; sym_kGoto; sym_kIf; sym_kInherited; sym_kLabel; sym_kNil; sym_kNot;
   sym_kProcedure; sym_kProperty; sym_kRaise; sym_kRepeat; sym_kResourcestring; sym_kString;
   sym_kThreadvar; sym_kTry; sym_kType; sym_kUses; sym_kVar; sym_kWhile; sym_kWith]].

(** State 1295. *)
Definition ts_parse_table_1295 : parse_row :=
  [ACTIONS 10566 [anon_sym_SEMI; anon_sym_COMMA; anon_sym_LBRACK];
   ACTIONS 10568 [anon_sym_LPAREN]; ACTIONS 10566 [aux_sym__literalString_token1;
   anon_sym_POUND]; ACTIONS 10568 [aux_sym__literalInt_token1];
   ACTIONS 10566 [aux_sym__literalInt_token2; aux_sym__literalInt_token3];
   ACTIONS 10568 [aux_sym__literalFloat_token1]; ACTIONS 10566 [aux_sym_ppUsesBlock_token1;
   aux_sym_ppUsesBlock_token2; aux_sym_ppUsesBlock_token3]; ACTIONS 10568 [sym_kAdd; sym_kSub];
   ACTIONS 10566 [sym_kAt; sym_kTrue; sym_kFalse]; ACTIONS 3 [sym__space];
   ACTIONS 5 [sym_ppDirective]; ACTIONS 3 [sym_comment]; ACTIONS 10566 [sym_ppFragmentExpr;
   sym__literalStringMultiline; sym_identifier; sym_kDefault; sym_kNodefault; sym_kDispId;
   sym_kGeneric; sym_kSpecialize; sym_kOperator; sym_kPublic; sym_kStatic; sym_kVirtual;
   sym_kAbstract; sym_kDynamic; sym_kOverride; sym_kOverload; sym_kReintroduce; sym_kStdcall;
   sym_kCdecl; sym_kCppdecl; sym_kPascal; sym_kRegister; sym_kMwpascal; sym_kMessage;
   sym_kDeprecated; sym_kExperimental; sym_kPlatform; sym_kUnimplemented; sym_kCvar; sym_kExport;
   sym_kFar; sym_kNear; sym_kSafecall; sym_kAssembler; sym_kNostackframe; sym_kInterrupt;
   sym_kNoreturn; sym_kIocheck; sym_kLocal; sym_kHardfloat; sym_kSoftfloat; sym_kMs_abi_default;
   sym_kMs_abi_cdecl; sym_kSaveregisters; sym_kSysv_abi_default; sym_kSysv_abi_cdecl;
   sym_kVectorcall; sym_kVarargs; sym_kWinapi; sym_kAlias; sym_kAsm; sym_kBegin; sym_kCase;
   sym_kClass; sym_kConst; sym_kConstructor; sym_kDestructor; sym_kExports; sym_kFor;
   sym_kFunction; sym_kGoto; sym_kIf; sym_kInherited; sym_kInline; sym_kLabel; sym_kNil;
   sym_kNot; sym_kProcedure; sym_kProperty; sym_kRaise; sym_kRepeat; sym_kResourcestring;
   sym_kString; sym_kThreadvar; sym_kTry; sym_kType; sym_kUses; sym_kVar; sym_kWhile; sym_kWith]].

(** State 1296. *)
Definition ts_parse_table_1296 : parse_row :=
  [ACTIONS 10878 [anon_sym_SEMI; anon_sym_COMMA; anon_sym_LBRACK];
   ACTIONS 10880 [anon_sym_LPAREN]; ACTIONS 10878 [aux_sym__literalString_token1;
   anon_sym_POUND]; ACTIONS 10880 [aux_sym__literalInt_token1];
   ACTIONS 10878 [aux_sym__literalInt_token2; aux_sym__literalInt_token3];
   ACTIONS 10880 [aux_sym__literalFloat_token1]; ACTIONS 10878 [aux_sym_ppUsesBlock_token1;
   aux_sym_ppUsesBlock_token2; aux_sym_ppUsesBlock_token3]; ACTIONS 10880 [sym_kAdd; sym_kSub];
   ACTIONS 10878 [sym_kAt; sym_kTrue; sym_kFalse]; ACTIONS 3 [sym__space];
   ACTIONS 5 [sym_ppDirective]; ACTIONS 3 [sym_comment]; ACTIONS 10878 [sym_ppFragmentExpr;
   sym__literalStringMultiline; sym_identifier; sym_kDefault; sym_kNodefault; sym_kDispId;
   sym_kGeneric; sym_kSpecialize; sym_kOperator; sym_kPublic; sym_kStatic; sym_kVirtual;
   sym_kAbstract; sym_kDynamic; sym_kOverride; sym_kOverload; sym_kReintroduce; sym_kStdcall;
   sym_kCdecl; sym_kCppdecl; sym_kPascal; sym_kRegister; sym_kMwpascal; sym_kMessage;
   sym_kDeprecated; sym_kExperimental; sym_kPlatform; sym_kUnimplemented; sym_kCvar; sym_kExport;
   sym_kFar; sym_kNear; sym_kSafecall; sym_kAssembler; sym_kNostackframe; sym_kInterrupt;
   sym_kNoreturn; sym_kIocheck; sym_kLocal; sym_kHardfloat; sym_kSoftfloat; sym_kMs_abi_default;
   sym_kMs_abi_cdecl; sym_kSaveregisters; sym_kSysv_abi_default; sym_kSysv_abi_cdecl;
   sym_kVectorcall; sym_kVarargs; sym_kWinapi; sym_kAlias; sym_kAsm; sym_kBegin; sym_kCase;
   sym_kClass; sym_kConst; sym_kConstructor; sym_kDestructor; sym_kElse; sym_kExports; sym_kFor;
   sym_kFunction; sym_kGoto; sym_kIf; sym_kInherited; sym_kLabel; sym_kNil; sym_kNot;
   sym_kProcedure; sym_kProperty; sym_kRaise; sym_kRepeat; sym_kResourcestring; sym_kString;
   sym_kThreadvar; sym_kTry; sym_kType; sym_kUses; sym_kVar; sym_kWhile; sym_kWith]].

(** State 1297. *)
Definition ts_parse_table_1297 : parse_row :=
  [ACTIONS 10882 [anon_sym_SEMI; anon_sym_COMMA; anon_sym_LBRACK];
   ACTIONS 10884 [anon_sym_LPAREN]; ACTIONS 10882 [aux_sym__literalString_token1;
   anon_sym_POUND]; ACTIONS 10884 [aux_sym__literalInt_token1];
   ACTIONS 10882 [aux_sym__literalInt_token2; aux_sym__literalInt_token3];
   ACTIONS 10884 [aux_sym__literalFloat_token1]; ACTIONS 10882 [aux_sym_ppUsesBlock_token1;
   aux_sym_ppUsesBlock_token2; aux_sym_ppUsesBlock_token3]; ACTIONS 10884 [sym_kAdd; sym_kSub];
   ACTIONS 10882 [sym_kAt; sym_kTrue; sym_kFalse]; ACTIONS 3 [sym__space];
   ACTIONS 5 [sym_ppDirective]; ACTIONS 3 [sym_comment]; ACTIONS 10882 [sym_ppFragmentExpr;
   sym__literalStringMultiline; sym_identifier; sym_kDefault; sym_kNodefault; sym_kDispId;
   sym_kGeneric; sym_kSpecialize; sym_kOperator; sym_kPublic; sym_kStatic; sym_kVirtual;
   sym_kAbstract; sym_kDynamic; sym_kOverride; sym_kOverload; sym_kReintroduce; sym_kStdcall;
   sym_kCdecl; sym_kCppdecl; sym_kPascal; sym_kRegister; sym_kMwpascal; sym_kMessage;
   sym_kDeprecated; sym_kExperimental; sym_kPlatform; sym_kUnimplemented; sym_kCvar; sym_kExport;
   sym_kFar; sym_kNear; sym_kSafecall; sym_kAssembler; sym_kNostackframe; sym_kInterrupt;
   sym_kNoreturn; sym_kIocheck; sym_kLocal; sym_kHardfloat; sym_kSoftfloat; sym_kMs_abi_default;
   sym_kMs_abi_cdecl; sym_kSaveregisters; sym_kSysv_abi_default; sym_kSysv_abi_cdecl;
   sym_kVectorcall; sym_kVarargs; sym_kWinapi; sym_kAlias; sym_kAsm; sym_kBegin; sym_kCase;
   sym_kClass; sym_kConst; sym_kConstructor; sym_kDestructor; sym_kElse; sym_kExports; sym_kFor;
   sym_kFunction; sym_kGoto; sym_kIf; sym_kInherited; sym_kLabel; sym_kNil; sym_kNot;
   sym_kProcedure; sym_kProperty; sym_kRaise; sym_kRepeat; sym_kResourcestring; sym_kString;
   sym_kThreadvar; sym_kTry; sym_kType; sym_kUses; sym_kVar; sym_kWhile; sym_kWith]].

(** State 1298. *)
Definition ts_parse_table_1298 : parse_row :=
  [ACTIONS 10886 [anon_sym_SEMI; anon_sym_COMMA; anon_sym_LBRACK];
   ACTIONS 10888 [anon_sym_LPAREN]; ACTIONS 10886 [aux_sym__literalString_token1;
   anon_sym_POUND]; ACTIONS 10888 [aux_sym__literalInt_token1];
   ACTIONS 10886 [aux_sym__literalInt_token2; aux_sym__literalInt_token3];
   ACTIONS 10888 [aux_sym__literalFloat_token1]; ACTIONS 10886 [aux_sym_ppUsesBlock_token1;
   aux_sym_ppUsesBlock_token2; aux_sym_ppUsesBlock_token3]; ACTIONS 10888 [sym_kAdd; sym_kSub];
   ACTIONS 10886 [sym_kAt; sym_kTrue; sym_kFalse]; ACTIONS 3 [sym__space];
   ACTIONS 5 [sym_ppDirective]; ACTIONS 3 [sym_comment]; ACTIONS 10886 [sym_ppFragmentExpr;
   sym__literalStringMultiline; sym_identifier; sym_kDefault; sym_kNodefault; sym_kDispId;
   sym_kGeneric; sym_kSpecialize; sym_kOperator; sym_kPublic; sym_kStatic; sym_kVirtual;
   sym_kAbstract; sym_kDynamic; sym_kOverride; sym_kOverload; sym_kReintroduce; sym_kStdcall;
   sym_kCdecl; sym_kCppdecl; sym_kPascal; sym_kRegister; sym_kMwpascal; sym_kMessage;
   sym_kDeprecated; sym_kExperimental; sym_kPlatform; sym_kUnimplemented; sym_kCvar; sym_kExport;
   sym_kFar; sym_kNear; sym_kSafecall; sym_kAssembler; sym_kNostackframe; sym_kInterrupt;
   sym_kNoreturn; sym_kIocheck; sym_kLocal; sym_kHardfloat; sym_kSoftfloat; sym_kMs_abi_default;
   sym_kMs_abi_cdecl; sym_kSaveregisters; sym_kSysv_abi_default; sym_kSysv_abi_cdecl;
   sym_kVectorcall; sym_kVarargs; sym_kWinapi; sym_kAlias; sym_kAsm; sym_kBegin; sym_kCase;
   sym_kClass; sym_kConst; sym_kConstructor; sym_kDestructor; sym_kElse; sym_kExports; sym_kFor;
   sym_kFunction; sym_kGoto; sym_kIf; sym_kInherited; sym_kLabel; sym_kNil; sym_kNot;
   sym_kProcedure; sym_kProperty; sym_kRaise; sym_kRepeat; sym_kResourcestring; sym_kString;
   sym_kThreadvar; sym_kTry; sym_kType; sym_kUses; sym_kVar; sym_kWhile; sym_kWith]].

(** State 1299. *)
Definition ts_parse_table_1299 : parse_row :=
  [ACTIONS 10890 [anon_sym_SEMI; anon_sym_COMMA; anon_sym_LBRACK];
   ACTIONS 10892 [anon_sym_LPAREN]; ACTIONS 10890 [aux_sym__literalString_token1;
   anon_sym_POUND]; ACTIONS 10892 [aux_sym__literalInt_token1];
   ACTIONS 10890 [aux_sym__literalInt_token2; aux_sym__literalInt_token3];
   ACTIONS 10892 [aux_sym__literalFloat_token1]; ACTIONS 10890 [aux_sym_ppUsesBlock_token1;
   aux_sym_ppUsesBlock_token2; aux_sym_ppUsesBlock_token3]; ACTIONS 10892 [sym_kAdd; sym_kSub];
   ACTIONS 10890 [sym_kAt; sym_kTrue; sym_kFalse]; ACTIONS 3 [sym__space];
   ACTIONS 5 [sym_ppDirective]; ACTIONS 3 [sym_comment]; ACTIONS 10890 [sym_ppFragmentExpr;
   sym__literalStringMultiline; sym_identifier; sym_kDefault; sym_kNodefault; sym_kDispId;
   sym_kGeneric; sym_kSpecialize; sym_kOperator; sym_kPublic; sym_kStatic; sym_kVirtual;
   sym_kAbstract; sym_kDynamic; sym_kOverride; sym_kOverload; sym_kReintroduce; sym_kStdcall;
   sym_kCdecl; sym_kCppdecl; sym_kPascal; sym_kRegister; sym_kMwpascal; sym_kMessage;
   sym_kDeprecated; sym_kExperimental; sym_kPlatform; sym_kUnimplemented; sym_kCvar; sym_kExport;
   sym_kFar; sym_kNear; sym_kSafecall; sym_kAssembler; sym_kNostackframe; sym_kInterrupt;
   sym_kNoreturn; sym_kIocheck; sym_kLocal; sym_kHardfloat; sym_kSoftfloat; sym_kMs_abi_default;
   sym_kMs_abi_cdecl; sym_kSaveregisters; sym_kSysv_abi_default; sym_kSysv_abi_cdecl;
   sym_kVectorcall; sym_kVarargs; sym_kWinapi; sym_kAlias; sym_kAsm; sym_kBegin; sym_kCase;
   sym_kClass; sym_kConst; sym_kConstructor; sym_kDestructor; sym_kElse; sym_kExports; sym_kFor;
   sym_kFunction; sym_kGoto; sym_kIf; sym_kInherited; sym_kLabel; sym_kNil; sym_kNot;
   sym_kProcedure; sym_kProperty; sym_kRaise; sym_kRepeat; sym_kResourcestring; sym_kString;
   sym_kThreadvar; sym_kTry; sym_kType; sym_kUses; sym_kVar; sym_kWhile; sym_kWith]].

(** State 1300. *)
Definition ts_parse_table_1300 : parse_row :=
  [ACTIONS 10894 [anon_sym_SEMI; anon_sym_COMMA; anon_sym_LBRACK];
   ACTIONS 10896 [anon_sym_LPAREN]; ACTIONS 10894 [aux_sym__literalString_token1;
   anon_sym_POUND]; ACTIONS 10896 [aux_sym__literalInt_token1];
   ACTIONS 10894 [aux_sym__literalInt_token2; aux_sym__literalInt_token3];
   ACTIONS 10896 [aux_sym__literalFloat_token1]; ACTIONS 10894 [aux_sym_ppUsesBlock_token1;
   aux_sym_ppUsesBlock_token2; aux_sym_ppUsesBlock_token3]; ACTIONS 10896 [sym_kAdd; sym_kSub];
   ACTIONS 10894 [sym_kAt; sym_kTrue; sym_kFalse]; ACTIONS 3 [sym__space];
   ACTIONS 5 [sym_ppDirective]; ACTIONS 3 [sym_comment]; ACTIONS 10894 [sym_ppFragmentExpr;
   sym__literalStringMultiline; sym_identifier; sym_kDefault; sym_kNodefault; sym_kDispId;
   sym_kGeneric; sym_kSpecialize; sym_kOperator; sym_kPublic; sym_kStatic; sym_kVirtual;
   sym_kAbstract; sym_kDynamic; sym_kOverride; sym_kOverload; sym_kReintroduce; sym_kStdcall;
   sym_kCdecl; sym_kCppdecl; sym_kPascal; sym_kRegister; sym_kMwpascal; sym_kMessage;
   sym_kDeprecated; sym_kExperimental; sym_kPlatform; sym_kUnimplemented; sym_kCvar; sym_kExport;
   sym_kFar; sym_kNear; sym_kSafecall; sym_kAssembler; sym_kNostackframe; sym_kInterrupt;
   sym_kNoreturn; sym_kIocheck; sym_kLocal; sym_kHardfloat; sym_kSoftfloat; sym_kMs_abi_default;
   sym_kMs_abi_cdecl; sym_kSaveregisters; sym_kSysv_abi_default; sym_kSysv_abi_cdecl;
   sym_kVectorcall; sym_kVarargs; sym_kWinapi; sym_kAlias; sym_kAsm; sym_kBegin; sym_kCase;
   sym_kClass; sym_kConst; sym_kConstructor; sym_kDestructor; sym_kElse; sym_kExports; sym_kFor;
   sym_kFunction; sym_kGoto; sym_kIf; sym_kInherited; sym_kLabel; sym_kNil; sym_kNot;
   sym_kProcedure; sym_kProperty; sym_kRaise; sym_kRepeat; sym_kResourcestring; sym_kString;
   sym_kThreadvar; sym_kTry; sym_kType; sym_kUses; sym_kVar; sym_kWhile; sym_kWith]].

(** State 1301. *)
Definition ts_parse_table_1301 : parse_row :=
  [ACTIONS 10898 [anon_sym_SEMI; anon_sym_COMMA; anon_sym_LBRACK];
   ACTIONS 10900 [anon_sym_LPAREN]; ACTIONS 10898 [aux_sym__literalString_token1;
   anon_sym_POUND]; ACTIONS 10900 [aux_sym__literalInt_token1];
   ACTIONS 10898 [aux_sym__literalInt_token2; aux_sym__literalInt_token3];
   ACTIONS 10900 [aux_sym__literalFloat_token1]; ACTIONS 10898 [aux_sym_ppUsesBlock_token1;
   aux_sym_ppUsesBlock_token2; aux_sym_ppUsesBlock_token3]; ACTIONS 10900 [sym_kAdd; sym_kSub];
   ACTIONS 10898 [sym_kAt; sym_kTrue; sym_kFalse]; ACTIONS 3 [sym__space];
   ACTIONS 5 [sym_ppDirective]; ACTIONS 3 [sym_comment]; ACTIONS 10898 [sym_ppFragmentExpr;
   sym__literalStringMultiline; sym_identifier; sym_kDefault; sym_kNodefault; sym_kDispId;
   sym_kGeneric; sym_kSpecialize; sym_kOperator; sym_kPublic; sym_kStatic; sym_kVirtual;
   sym_kAbstract; sym_kDynamic; sym_kOverride; sym_kOverload; sym_kReintroduce; sym_kStdcall;
   sym_kCdecl; sym_kCppdecl; sym_kPascal; sym_kRegister; sym_kMwpascal; sym_kMessage;
   sym_kDeprecated; sym_kExperimental; sym_kPlatform; sym_kUnimplemented; sym_kCvar; sym_kExport;
   sym_kFar; sym_kNear; sym_kSafecall; sym_kAssembler; sym_kNostackframe; sym_kInterrupt;
   sym_kNoreturn; sym_kIocheck; sym_kLocal; sym_kHardfloat; sym_kSoftfloat; sym_kMs_abi_default;
   sym_kMs_abi_cdecl; sym_kSaveregisters; sym_kSysv_abi_default; sym_kSysv_abi_cdecl;
   sym_kVectorcall; sym_kVarargs; sym_kWinapi; sym_kAlias; sym_kAsm; sym_kBegin; sym_kCase;
   sym_kClass; sym_kConst; sym_kConstructor; sym_kDestructor; sym_kElse; sym_kExports; sym_kFor;
   sym_kFunction; sym_kGoto; sym_kIf; sym_kInherited; sym_kLabel; sym_kNil; sym_kNot;
   sym_kProcedure; sym_kProperty; sym_kRaise; sym_kRepeat; sym_kResourcestring; sym_kString;
   sym_kThreadvar; sym_kTry; sym_kType; sym_kUses; sym_kVar; sym_kWhile; sym_kWith]].

(** State 1302. *)
Definition ts_parse_table_1302 : parse_row :=
  [ACTIONS 10902 [anon_sym_SEMI; anon_sym_COMMA; anon_sym_LBRACK];
   ACTIONS 10904 [anon_sym_LPAREN]; ACTIONS 10902 [aux_sym__literalString_token1;
   anon_sym_POUND]; ACTIONS 10904 [aux_sym__literalInt_token1];
   ACTIONS 10902 [aux_sym__literalInt_token2; aux_sym__literalInt_token3];
   ACTIONS 10904 [aux_sym__literalFloat_token1]; ACTIONS 10902 [aux_sym_ppUsesBlock_token1;
   aux_sym_ppUsesBlock_token2; aux_sym_ppUsesBlock_token3]; ACTIONS 10904 [sym_kAdd; sym_kSub];
   ACTIONS 10902 [sym_kAt; sym_kTrue; sym_kFalse]; ACTIONS 3 [sym__space];
   ACTIONS 5 [sym_ppDirective]; ACTIONS 3 [sym_comment]; ACTIONS 10902 [sym_ppFragmentExpr;
   sym__literalStringMultiline; sym_identifier; sym_kDefault; sym_kNodefault; sym_kDispId;
   sym_kGeneric; sym_kSpecialize; sym_kOperator; sym_kPublic; sym_kStatic; sym_kVirtual;
   sym_kAbstract; sym_kDynamic; sym_kOverride; sym_kOverload; sym_kReintroduce; sym_kStdcall;
   sym_kCdecl; sym_kCppdecl; sym_kPascal; sym_kRegister; sym_kMwpascal; sym_kMessage;
   sym_kDeprecated; sym_kExperimental; sym_kPlatform; sym_kUnimplemented; sym_kCvar; sym_kExport;
   sym_kFar; sym_kNear; sym_kSafecall; sym_kAssembler; sym_kNostackframe; sym_kInterrupt;
   sym_kNoreturn; sym_kIocheck; sym_kLocal; sym_kHardfloat; sym_kSoftfloat; sym_kMs_abi_default;
   sym_kMs_abi_cdecl; sym_kSaveregisters; sym_kSysv_abi_default; sym_kSysv_abi_cdecl;
   sym_kVectorcall; sym_kVarargs; sym_kWinapi; sym_kAlias; sym_kAsm; sym_kBegin; sym_kCase;
   sym_kClass; sym_kConst; sym_kConstructor; sym_kDestructor; sym_kElse; sym_kExports; sym_kFor;
   sym_kFunction; sym_kGoto; sym_kIf; sym_kInherited; sym_kLabel; sym_kNil; sym_kNot;
   sym_kProcedure; sym_kProperty; sym_kRaise; sym_kRepeat; sym_kResourcestring; sym_kString;
   sym_kThreadvar; sym_kTry; sym_kType; sym_kUses; sym_kVar; sym_kWhile; sym_kWith]].

(** State 1303. *)
Definition ts_parse_table_1303 : parse_row :=
  [ACTIONS 10906 [anon_sym_SEMI; anon_sym_COMMA; anon_sym_LBRACK];
   ACTIONS 10908 [anon_sym_LPAREN]; ACTIONS 10906 [aux_sym__literalString_token1;
   anon_sym_POUND]; ACTIONS 10908 [aux_sym__literalInt_token1];
   ACTIONS 10906 [aux_sym__literalInt_token2; aux_sym__literalInt_token3];
   ACTIONS 10908 [aux_sym__literalFloat_token1]; ACTIONS 10906 [aux_sym_ppUsesBlock_token1;
   aux_sym_ppUsesBlock_token2; aux_sym_ppUsesBlock_token3]; ACTIONS 10908 [sym_kAdd; sym_kSub];
   ACTIONS 10906 [sym_kAt; sym_kTrue; sym_kFalse]; ACTIONS 3 [sym__space];
   ACTIONS 5 [sym_ppDirective]; ACTIONS 3 [sym_comment]; ACTIONS 10906 [sym_ppFragmentExpr;
   sym__literalStringMultiline; sym_identifier; sym_kDefault; sym_kNodefault; sym_kDispId;
   sym_kGeneric; sym_kSpecialize; sym_kOperator; sym_kPublic; sym_kStatic; sym_kVirtual;
   sym_kAbstract; sym_kDynamic; sym_kOverride; sym_kOverload; sym_kReintroduce; sym_kStdcall;
   sym_kCdecl; sym_kCppdecl; sym_kPascal; sym_kRegister; sym_kMwpascal; sym_kMessage;
   sym_kDeprecated; sym_kExperimental; sym_kPlatform; sym_kUnimplemented; sym_kCvar; sym_kExport;
   sym_kFar; sym_kNear; sym_kSafecall; sym_kAssembler; sym_kNostackframe; sym_kInterrupt;
   sym_kNoreturn; sym_kIocheck; sym_kLocal; sym_kHardfloat; sym_kSoftfloat; sym_kMs_abi_default;
   sym_kMs_abi_cdecl; sym_kSaveregisters; sym_kSysv_abi_default; sym_kSysv_abi_cdecl;
   sym_kVectorcall; sym_kVarargs; sym_kWinapi; sym_kAlias; sym_kAsm; sym_kBegin; sym_kCase;
   sym_kClass; sym_kConst; sym_kConstructor; sym_kDestructor; sym_kElse; sym_kExports; sym_kFor;
   sym_kFunction; sym_kGoto; sym_kIf; sym_kInherited; sym_kLabel; sym_kNil; sym_kNot;
   sym_kProcedure; sym_kProperty; sym_kRaise; sym_kRepeat; sym_kResourcestring; sym_kString;
   sym_kThreadvar; sym_kTry; sym_kType; sym_kUses; sym_kVar; sym_kWhile; sym_kWith]].

(** State 1304. *)
Definition ts_parse_table_1304 : parse_row :=
  [ACTIONS 10910 [anon_sym_SEMI; anon_sym_COMMA; anon_sym_LBRACK];
   ACTIONS 10912 [anon_sym_LPAREN]; ACTIONS 10910 [aux_sym__literalString_token1;
   anon_sym_POUND]; ACTIONS 10912 [aux_sym__literalInt_token1];
   ACTIONS 10910 [aux_sym__literalInt_token2; aux_sym__literalInt_token3];
   ACTIONS 10912 [aux_sym__literalFloat_token1]; ACTIONS 10910 [aux_sym_ppUsesBlock_token1;
   aux_sym_ppUsesBlock_token2; aux_sym_ppUsesBlock_token3]; ACTIONS 10912 [sym_kAdd; sym_kSub];
   ACTIONS 10910 [sym_kAt; sym_kTrue; sym_kFalse]; ACTIONS 3 [sym__space];
   ACTIONS 5 [sym_ppDirective]; ACTIONS 3 [sym_comment]; ACTIONS 10910 [sym_ppFragmentExpr;
   sym__literalStringMultiline; sym_identifier; sym_kDefault; sym_kNodefault; sym_kDispId;
   sym_kGeneric; sym_kSpecialize; sym_kOperator; sym_kPublic; sym_kStatic; sym_kVirtual;
   sym_kAbstract; sym_kDynamic; sym_kOverride; sym_kOverload; sym_kReintroduce; sym_kStdcall;
   sym_kCdecl; sym_kCppdecl; sym_kPascal; sym_kRegister; sym_kMwpascal; sym_kMessage;
   sym_kDeprecated; sym_kExperimental; sym_kPlatform; sym_kUnimplemented; sym_kCvar; sym_kExport;
   sym_kFar; sym_kNear; sym_kSafecall; sym_kAssembler; sym_kNostackframe; sym_kInterrupt;
   sym_kNoreturn; sym_kIocheck; sym_kLocal; sym_kHardfloat; sym_kSoftfloat; sym_kMs_abi_default;
   sym_kMs_abi_cdecl; sym_kSaveregisters; sym_kSysv_abi_default; sym_kSysv_abi_cdecl;
   sym_kVectorcall; sym_kVarargs; sym_kWinapi; sym_kAlias; sym_kAsm; sym_kBegin; sym_kCase;
   sym_kClass; sym_kConst; sym_kConstructor; sym_kDestructor; sym_kElse; sym_kExports; sym_kFor;
   sym_kFunction; sym_kGoto; sym_kIf; sym_kInherited; sym_kLabel; sym_kNil; sym_kNot;
   sym_kProcedure; sym_kProperty; sym_kRaise; sym_kRepeat; sym_kResourcestring; sym_kString;
   sym_kThreadvar; sym_kTry; sym_kType; sym_kUses; sym_kVar; sym_kWhile; sym_kWith]].

(** State 1305. *)
Definition ts_parse_table_1305 : parse_row :=
  [ACTIONS 10914 [anon_sym_SEMI; anon_sym_COMMA; anon_sym_LBRACK];
   ACTIONS 10916 [anon_sym_LPAREN]; ACTIONS 10914 [aux_sym__literalString_token1;
   anon_sym_POUND]; ACTIONS 10916 [aux_sym__literalInt_token1];
   ACTIONS 10914 [aux_sym__literalInt_token2; aux_sym__literalInt_token3];
   ACTIONS 10916 [aux_sym__literalFloat_token1]; ACTIONS 10914 [aux_sym_ppUsesBlock_token1;
   aux_sym_ppUsesBlock_token2; aux_sym_ppUsesBlock_token3]; ACTIONS 10916 [sym_kAdd; sym_kSub];
   ACTIONS 10914 [sym_kAt; sym_kTrue; sym_kFalse]; ACTIONS 3 [sym__space];
   ACTIONS 5 [sym_ppDirective]; ACTIONS 3 [sym_comment]; ACTIONS 10914 [sym_ppFragmentExpr;
   sym__literalStringMultiline; sym_identifier; sym_kDefault; sym_kNodefault; sym_kDispId;
   sym_kGeneric; sym_kSpecialize; sym_kOperator; sym_kPublic; sym_kStatic; sym_kVirtual;
   sym_kAbstract; sym_kDynamic; sym_kOverride; sym_kOverload; sym_kReintroduce; sym_kStdcall;
   sym_kCdecl; sym_kCppdecl; sym_kPascal; sym_kRegister; sym_kMwpascal; sym_kMessage;
   sym_kDeprecated; sym_kExperimental; sym_kPlatform; sym_kUnimplemented; sym_kCvar; sym_kExport;
   sym_kFar; sym_kNear; sym_kSafecall; sym_kAssembler; sym_kNostackframe; sym_kInterrupt;
   sym_kNoreturn; sym_kIocheck; sym_kLocal; sym_kHardfloat; sym_kSoftfloat; sym_kMs_abi_default;
   sym_kMs_abi_cdecl; sym_kSaveregisters; sym_kSysv_abi_default; sym_kSysv_abi_cdecl;
   sym_kVectorcall; sym_kVarargs; sym_kWinapi; sym_kAlias; sym_kAsm; sym_kBegin; sym_kCase;
   sym_kClass; sym_kConst; sym_kConstructor; sym_kDestructor; sym_kElse; sym_kExports; sym_kFor;
   sym_kFunction; sym_kGoto; sym_kIf; sym_kInherited; sym_kLabel; sym_kNil; sym_kNot;
   sym_kProcedure; sym_kProperty; sym_kRaise; sym_kRepeat; sym_kResourcestring; sym_kString;
   sym_kThreadvar; sym_kTry; sym_kType; sym_kUses; sym_kVar; sym_kWhile; sym_kWith]].

(** State 1306. *)
Definition ts_parse_table_1306 : parse_row :=
  [STATE 15084 [sym_if]; STATE 14661 [sym_ifElse; sym_while; sym_repeat; sym_for; sym_foreach;
   sym_try; sym_case; sym_block; sym_asm; sym_with; sym_raise; sym_statement; sym_goto;
   sym__statement]; STATE 14724 [sym_ifTr; sym_ifElseTr; sym_whileTr; sym_repeatTr; sym_forTr;
   sym_foreachTr; sym_tryTr; sym_caseTr]; STATE 15738 [sym_blockTr]; STATE 14724 [sym_asmTr;
   sym_withTr; sym_raiseTr; sym_statementTr; sym_gotoTr; sym__statementTr];
   STATE 13505 [sym_assignment]; STATE 11905 [sym_varAssignDef]; STATE 13505 [sym_varDef;
   sym_constDef]; STATE 6187 [sym_label]; STATE 8112 [sym__expr; sym_exprConditional];
   STATE 7363 [sym__ref; sym_lambda; sym_inherited; sym_exprDot; sym_exprDeref; sym_exprAs;
   sym_exprTpl; sym_exprSubscript; sym_exprCall]; STATE 8112 [sym_exprBinary; sym_exprUnary];
   STATE 7363 [sym_exprParens; sym_exprBrackets; sym__literal; sym_literalString];
   STATE 6967 [sym__literalString; sym_literalChar]; STATE 7363 [sym_literalNumber];
   STATE 7660 [sym__literalInt; sym__literalFloat];
   STATE 6187 [aux_sym_labeledStatement_repeat1]; STATE 6967 [aux_sym_literalString_repeat1];
   ACTIONS 10918 [anon_sym_SEMI]; ACTIONS 9986 [anon_sym_LBRACK]; ACTIONS 9988 [anon_sym_LPAREN];
   ACTIONS 9990 [aux_sym__literalString_token1]; ACTIONS 9992 [anon_sym_POUND];
   ACTIONS 9994 [aux_sym__literalInt_token1]; ACTIONS 9996 [aux_sym__literalInt_token2;
   aux_sym__literalInt_token3]; ACTIONS 9994 [aux_sym__literalFloat_token1];
   ACTIONS 9998 [sym_kAdd; sym_kSub]; ACTIONS 10000 [sym_kAt]; ACTIONS 10002 [sym_kTrue;
   sym_kFalse]; ACTIONS 10004 [sym_labelNumber]; ACTIONS 3 [sym__space];
   ACTIONS 5 [sym_ppDirective]; ACTIONS 3 [sym_comment]; ACTIONS 10002 [sym_ppFragmentExpr];
   ACTIONS 9990 [sym__literalStringMultiline]; ACTIONS 10006 [sym_identifier];
   ACTIONS 10008 [sym_kSpecialize]; ACTIONS 10276 [sym_kAsm]; ACTIONS 10278 [sym_kBegin];
   ACTIONS 10280 [sym_kCase]; ACTIONS 10016 [sym_kConst]; ACTIONS 4439 [sym_kElse];
   ACTIONS 10282 [sym_kFor]; ACTIONS 10020 [sym_kFunction]; ACTIONS 10284 [sym_kGoto];
   ACTIONS 10572 [sym_kIf]; ACTIONS 10026 [sym_kInherited]; ACTIONS 10002 [sym_kNil];
   ACTIONS 10000 [sym_kNot]; ACTIONS 10020 [sym_kProcedure]; ACTIONS 10288 [sym_kRaise];
   ACTIONS 10290 [sym_kRepeat]; ACTIONS 10032 [sym_kString]; ACTIONS 10292 [sym_kTry];
   ACTIONS 10036 [sym_kVar]; ACTIONS 10294 [sym_kWhile]; ACTIONS 10296 [sym_kWith]].

(** State 1307. *)
Definition ts_parse_table_1307 : parse_row :=
  [ACTIONS 10706 [anon_sym_SEMI; anon_sym_COMMA; anon_sym_LBRACK];
   ACTIONS 10708 [anon_sym_LPAREN]; ACTIONS 10706 [aux_sym__literalString_token1;
   anon_sym_POUND]; ACTIONS 10708 [aux_sym__literalInt_token1];
   ACTIONS 10706 [aux_sym__literalInt_token2; aux_sym__literalInt_token3];
   ACTIONS 10708 [aux_sym__literalFloat_token1]; ACTIONS 10706 [aux_sym_ppUsesBlock_token1;
   aux_sym_ppUsesBlock_token2; aux_sym_ppUsesBlock_token3]; ACTIONS 10708 [sym_kAdd; sym_kSub];
   ACTIONS 10706 [sym_kAt; sym_kTrue; sym_kFalse]; ACTIONS 3 [sym__space];
   ACTIONS 5 [sym_ppDirective]; ACTIONS 3 [sym_comment]; ACTIONS 10706 [sym_ppFragmentExpr;
   sym__literalStringMultiline; sym_identifier; sym_kDefault; sym_kNodefault; sym_kDispId;
   sym_kGeneric; sym_kSpecialize; sym_kOperator; sym_kPublic; sym_kStatic; sym_kVirtual;
   sym_kAbstract; sym_kDynamic; sym_kOverride; sym_kOverload; sym_kReintroduce; sym_kStdcall;
   sym_kCdecl; sym_kCppdecl; sym_kPascal; sym_kRegister; sym_kMwpascal; sym_kMessage;
   sym_kDeprecated; sym_kExperimental; sym_kPlatform; sym_kUnimplemented; sym_kCvar; sym_kExport;
   sym_kFar; sym_kNear; sym_kSafecall; sym_kAssembler; sym_kNostackframe; sym_kInterrupt;
   sym_kNoreturn; sym_kIocheck; sym_kLocal; sym_kHardfloat; sym_kSoftfloat; sym_kMs_abi_default;
   sym_kMs_abi_cdecl; sym_kSaveregisters; sym_kSysv_abi_default; sym_kSysv_abi_cdecl;
   sym_kVectorcall; sym_kVarargs; sym_kWinapi; sym_kAlias; sym_kAsm; sym_kBegin; sym_kCase;
   sym_kClass; sym_kConst; sym_kConstructor; sym_kDestructor; sym_kExports; sym_kFor;
   sym_kFunction; sym_kGoto; sym_kIf; sym_kInherited; sym_kLabel; sym_kNil; sym_kNot;
   sym_kProcedure; sym_kProperty; sym_kRaise; sym_kRepeat; sym_kResourcestring; sym_kString;
   sym_kThreadvar; sym_kTry; sym_kType; sym_kUses; sym_kVar; sym_kWhile; sym_kWith]].

(** State 1308. *)
Definition ts_parse_table_1308 : parse_row :=
  [ACTIONS 10920 [anon_sym_SEMI; anon_sym_COMMA; anon_sym_LBRACK];
   ACTIONS 10922 [anon_sym_LPAREN]; ACTIONS 10920 [aux_sym__literalString_token1;
   anon_sym_POUND]; ACTIONS 10922 [aux_sym__literalInt_token1];
   ACTIONS 10920 [aux_sym__literalInt_token2; aux_sym__literalInt_token3];
   ACTIONS 10922 [aux_sym__literalFloat_token1]; ACTIONS 10920 [aux_sym_ppUsesBlock_token1;
   aux_sym_ppUsesBlock_token2; aux_sym_ppUsesBlock_token3]; ACTIONS 10922 [sym_kAdd; sym_kSub];
   ACTIONS 10920 [sym_kAt; sym_kTrue; sym_kFalse]; ACTIONS 3 [sym__space];
   ACTIONS 5 [sym_ppDirective]; ACTIONS 3 [sym_comment]; ACTIONS 10920 [sym_ppFragmentExpr;
   sym__literalStringMultiline; sym_identifier; sym_kDefault; sym_kNodefault; sym_kDispId;
   sym_kGeneric; sym_kSpecialize; sym_kOperator; sym_kPublic; sym_kStatic; sym_kVirtual;
   sym_kAbstract; sym_kDynamic; sym_kOverride; sym_kOverload; sym_kReintroduce; sym_kStdcall;
   sym_kCdecl; sym_kCppdecl; sym_kPascal; sym_kRegister; sym_kMwpascal; sym_kMessage;
   sym_kDeprecated; sym_kExperimental; sym_kPlatform; sym_kUnimplemented; sym_kCvar; sym_kExport;
   sym_kFar; sym_kNear; sym_kSafecall; sym_kAssembler; sym_kNostackframe; sym_kInterrupt;
   sym_kNoreturn; sym_kIocheck; sym_kLocal; sym_kHardfloat; sym_kSoftfloat; sym_kMs_abi_default;
   sym_kMs_abi_cdecl; sym_kSaveregisters; sym_kSysv_abi_default; sym_kSysv_abi_cdecl;
   sym_kVectorcall; sym_kVarargs; sym_kWinapi; sym_kAlias; sym_kAsm; sym_kBegin; sym_kCase;
   sym_kClass; sym_kConst; sym_kConstructor; sym_kDestructor; sym_kExports; sym_kFor;
   sym_kFunction; sym_kGoto; sym_kIf; sym_kInherited; sym_kLabel; sym_kNil; sym_kNot;
   sym_kProcedure; sym_kProperty; sym_kRaise; sym_kRepeat; sym_kResourcestring; sym_kString;
   sym_kThreadvar; sym_kTry; sym_kType; sym_kUses; sym_kVar; sym_kWhile; sym_kWith]].

(** State 1309. *)
Definition ts_parse_table_1309 : parse_row :=
  [ACTIONS 10924 [anon_sym_SEMI; anon_sym_COMMA; anon_sym_LBRACK];
   ACTIONS 10926 [anon_sym_LPAREN]; ACTIONS 10924 [aux_sym__literalString_token1;
   anon_sym_POUND]; ACTIONS 10926 [aux_sym__literalInt_token1];
   ACTIONS 10924 [aux_sym__literalInt_token2; aux_sym__literalInt_token3];
   ACTIONS 10926 [aux_sym__literalFloat_token1]; ACTIONS 10924 [aux_sym_ppUsesBlock_token1;
   aux_sym_ppUsesBlock_token2; aux_sym_ppUsesBlock_token3]; ACTIONS 10926 [sym_kAdd; sym_kSub];
   ACTIONS 10924 [sym_kAt; sym_kTrue; sym_kFalse]; ACTIONS 3 [sym__space];
   ACTIONS 5 [sym_ppDirective]; ACTIONS 3 [sym_comment]; ACTIONS 10924 [sym_ppFragmentExpr;
   sym__literalStringMultiline; sym_identifier; sym_kDefault; sym_kNodefault; sym_kDispId;
   sym_kGeneric; sym_kSpecialize; sym_kOperator; sym_kPublic; sym_kStatic; sym_kVirtual;
   sym_kAbstract; sym_kDynamic; sym_kOverride; sym_kOverload; sym_kReintroduce; sym_kStdcall;
   sym_kCdecl; sym_kCppdecl; sym_kPascal; sym_kRegister; sym_kMwpascal; sym_kMessage;
   sym_kDeprecated; sym_kExperimental; sym_kPlatform; sym_kUnimplemented; sym_kCvar; sym_kExport;
   sym_kFar; sym_kNear; sym_kSafecall; sym_kAssembler; sym_kNostackframe; sym_kInterrupt;
   sym_kNoreturn; sym_kIocheck; sym_kLocal; sym_kHardfloat; sym_kSoftfloat; sym_kMs_abi_default;
   sym_kMs_abi_cdecl; sym_kSaveregisters; sym_kSysv_abi_default; sym_kSysv_abi_cdecl;
   sym_kVectorcall; sym_kVarargs; sym_kWinapi; sym_kAlias; sym_kAsm; sym_kBegin; sym_kCase;
   sym_kClass; sym_kConst; sym_kConstructor; sym_kDestructor; sym_kExports; sym_kFor;
   sym_kFunction; sym_kGoto; sym_kIf; sym_kInherited; sym_kLabel; sym_kNil; sym_kNot;
   sym_kProcedure; sym_kProperty; sym_kRaise; sym_kRepeat; sym_kResourcestring; sym_kString;
   sym_kThreadvar; sym_kTry; sym_kType; sym_kUses; sym_kVar; sym_kWhile; sym_kWith]].

(** State 1310. *)
Definition ts_parse_table_1310 : parse_row :=
  [ACTIONS 10720 [anon_sym_SEMI; anon_sym_COMMA; anon_sym_LBRACK];
   ACTIONS 10722 [anon_sym_LPAREN]; ACTIONS 10720 [aux_sym__literalString_token1;
   anon_sym_POUND]; ACTIONS 10722 [aux_sym__literalInt_token1];
   ACTIONS 10720 [aux_sym__literalInt_token2; aux_sym__literalInt_token3];
   ACTIONS 10722 [aux_sym__literalFloat_token1]; ACTIONS 10720 [aux_sym_ppUsesBlock_token1;
   aux_sym_ppUsesBlock_token2; aux_sym_ppUsesBlock_token3]; ACTIONS 10722 [sym_kAdd; sym_kSub];
   ACTIONS 10720 [sym_kAt; sym_kTrue; sym_kFalse]; ACTIONS 3 [sym__space];
   ACTIONS 5 [sym_ppDirective]; ACTIONS 3 [sym_comment]; ACTIONS 10720 [sym_ppFragmentExpr;
   sym__literalStringMultiline; sym_identifier; sym_kDefault; sym_kNodefault; sym_kDispId;
   sym_kGeneric; sym_kSpecialize; sym_kOperator; sym_kPublic; sym_kStatic; sym_kVirtual;
   sym_kAbstract; sym_kDynamic; sym_kOverride; sym_kOverload; sym_kReintroduce; sym_kStdcall;
   sym_kCdecl; sym_kCppdecl; sym_kPascal; sym_kRegister; sym_kMwpascal; sym_kMessage;
   sym_kDeprecated; sym_kExperimental; sym_kPlatform; sym_kUnimplemented; sym_kCvar; sym_kExport;
   sym_kFar; sym_kNear; sym_kSafecall; sym_kAssembler; sym_kNostackframe; sym_kInterrupt;
   sym_kNoreturn; sym_kIocheck; sym_kLocal; sym_kHardfloat; sym_kSoftfloat; sym_kMs_abi_default;
   sym_kMs_abi_cdecl; sym_kSaveregisters; sym_kSysv_abi_default; sym_kSysv_abi_cdecl;
   sym_kVectorcall; sym_kVarargs; sym_kWinapi; sym_kAlias; sym_kAsm; sym_kBegin; sym_kCase;
   sym_kClass; sym_kConst; sym_kConstructor; sym_kDestructor; sym_kExports; sym_kFor;
   sym_kFunction; sym_kGoto; sym_kIf; sym_kInherited; sym_kLabel; sym_kNil; sym_kNot;
   sym_kProcedure; sym_kProperty; sym_kRaise; sym_kRepeat; sym_kResourcestring; sym_kString;
   sym_kThreadvar; sym_kTry; sym_kType; sym_kUses; sym_kVar; sym_kWhile; sym_kWith]].

(** State 1311. *)
Definition ts_parse_table_1311 : parse_row :=
  [ACTIONS 10750 [anon_sym_SEMI; anon_sym_COMMA; anon_sym_LBRACK];
   ACTIONS 10752 [anon_sym_LPAREN]; ACTIONS 10750 [aux_sym__literalString_token1;
   anon_sym_POUND]; ACTIONS 10752 [aux_sym__literalInt_token1];
   ACTIONS 10750 [aux_sym__literalInt_token2; aux_sym__literalInt_token3];
   ACTIONS 10752 [aux_sym__literalFloat_token1]; ACTIONS 10750 [aux_sym_ppUsesBlock_token1;
   aux_sym_ppUsesBlock_token2; aux_sym_ppUsesBlock_token3]; ACTIONS 10752 [sym_kAdd; sym_kSub];
   ACTIONS 10750 [sym_kAt; sym_kTrue; sym_kFalse]; ACTIONS 3 [sym__space];
   ACTIONS 5 [sym_ppDirective]; ACTIONS 3 [sym_comment]; ACTIONS 10750 [sym_ppFragmentExpr;
   sym__literalStringMultiline; sym_identifier; sym_kDefault; sym_kNodefault; sym_kDispId;
   sym_kGeneric; sym_kSpecialize; sym_kOperator; sym_kPublic; sym_kStatic; sym_kVirtual;
   sym_kAbstract; sym_kDynamic; sym_kOverride; sym_kOverload; sym_kReintroduce; sym_kStdcall;
   sym_kCdecl; sym_kCppdecl; sym_kPascal; sym_kRegister; sym_kMwpascal; sym_kMessage;
   sym_kDeprecated; sym_kExperimental; sym_kPlatform; sym_kUnimplemented; sym_kCvar; sym_kExport;
   sym_kFar; sym_kNear; sym_kSafecall; sym_kAssembler; sym_kNostackframe; sym_kInterrupt;
   sym_kNoreturn; sym_kIocheck; sym_kLocal; sym_kHardfloat; sym_kSoftfloat; sym_kMs_abi_default;
   sym_kMs_abi_cdecl; sym_kSaveregisters; sym_kSysv_abi_default; sym_kSysv_abi_cdecl;
   sym_kVectorcall; sym_kVarargs; sym_kWinapi; sym_kAlias; sym_kAsm; sym_kBegin; sym_kCase;
   sym_kClass; sym_kConst; sym_kConstructor; sym_kDestructor; sym_kExports; sym_kFor;
   sym_kFunction; sym_kGoto; sym_kIf; sym_kInherited; sym_kLabel; sym_kNil; sym_kNot;
   sym_kProcedure; sym_kProperty; sym_kRaise; sym_kRepeat; sym_kResourcestring; sym_kString;
   sym_kThreadvar; sym_kTry; sym_kType; sym_kUses; sym_kVar; sym_kWhile; sym_kWith]].

(** State 1312. *)
Definition ts_parse_table_1312 : parse_row :=
  [ACTIONS 10928 [anon_sym_SEMI; anon_sym_COMMA; anon_sym_LBRACK];
   ACTIONS 10930 [anon_sym_LPAREN]; ACTIONS 10928 [aux_sym__literalString_token1;
   anon_sym_POUND]; ACTIONS 10930 [aux_sym__literalInt_token1];
   ACTIONS 10928 [aux_sym__literalInt_token2; aux_sym__literalInt_token3];
   ACTIONS 10930 [aux_sym__literalFloat_token1]; ACTIONS 10928 [aux_sym_ppUsesBlock_token1;
   aux_sym_ppUsesBlock_token2; aux_sym_ppUsesBlock_token3]; ACTIONS 10930 [sym_kAdd; sym_kSub];
   ACTIONS 10928 [sym_kAt; sym_kTrue; sym_kFalse]; ACTIONS 3 [sym__space];
   ACTIONS 5 [sym_ppDirective]; ACTIONS 3 [sym_comment]; ACTIONS 10928 [sym_ppFragmentExpr;
   sym__literalStringMultiline; sym_identifier; sym_kDefault; sym_kNodefault; sym_kDispId;
   sym_kGeneric; sym_kSpecialize; sym_kOperator; sym_kPublic; sym_kStatic; sym_kVirtual;
   sym_kAbstract; sym_kDynamic; sym_kOverride; sym_kOverload; sym_kReintroduce; sym_kStdcall;
   sym_kCdecl; sym_kCppdecl; sym_kPascal; sym_kRegister; sym_kMwpascal; sym_kMessage;
   sym_kDeprecated; sym_kExperimental; sym_kPlatform; sym_kUnimplemented; sym_kCvar; sym_kExport;
   sym_kFar; sym_kNear; sym_kSafecall; sym_kAssembler; sym_kNostackframe; sym_kInterrupt;
   sym_kNoreturn; sym_kIocheck; sym_kLocal; sym_kHardfloat; sym_kSoftfloat; sym_kMs_abi_default;
   sym_kMs_abi_cdecl; sym_kSaveregisters; sym_kSysv_abi_default; sym_kSysv_abi_cdecl;
   sym_kVectorcall; sym_kVarargs; sym_kWinapi; sym_kAlias; sym_kAsm; sym_kBegin; sym_kCase;
   sym_kClass; sym_kConst; sym_kConstructor; sym_kDestructor; sym_kExports; sym_kFor;
   sym_kFunction; sym_kGoto; sym_kIf; sym_kInherited; sym_kLabel; sym_kNil; sym_kNot;
   sym_kProcedure; sym_kProperty; sym_kRaise; sym_kRepeat; sym_kResourcestring; sym_kString;
   sym_kThreadvar; sym_kTry; sym_kType; sym_kUses; sym_kVar; sym_kWhile; sym_kWith]].

(** State 1313. *)
Definition ts_parse_table_1313 : parse_row :=
  [ACTIONS 10818 [anon_sym_SEMI; anon_sym_COMMA; anon_sym_LBRACK];
   ACTIONS 10820 [anon_sym_LPAREN]; ACTIONS 10818 [aux_sym__literalString_token1;
   anon_sym_POUND]; ACTIONS 10820 [aux_sym__literalInt_token1];
   ACTIONS 10818 [aux_sym__literalInt_token2; aux_sym__literalInt_token3];
   ACTIONS 10820 [aux_sym__literalFloat_token1]; ACTIONS 10818 [aux_sym_ppUsesBlock_token1;
   aux_sym_ppUsesBlock_token2; aux_sym_ppUsesBlock_token3]; ACTIONS 10820 [sym_kAdd; sym_kSub];
   ACTIONS 10818 [sym_kAt; sym_kTrue; sym_kFalse]; ACTIONS 3 [sym__space];
   ACTIONS 5 [sym_ppDirective]; ACTIONS 3 [sym_comment]; ACTIONS 10818 [sym_ppFragmentExpr;
   sym__literalStringMultiline; sym_identifier; sym_kDefault; sym_kNodefault; sym_kDispId;
   sym_kGeneric; sym_kSpecialize; sym_kOperator; sym_kPublic; sym_kStatic; sym_kVirtual;
   sym_kAbstract; sym_kDynamic; sym_kOverride; sym_kOverload; sym_kReintroduce; sym_kStdcall;
   sym_kCdecl; sym_kCppdecl; sym_kPascal; sym_kRegister; sym_kMwpascal; sym_kMessage;
   sym_kDeprecated; sym_kExperimental; sym_kPlatform; sym_kUnimplemented; sym_kCvar; sym_kExport;
   sym_kFar; sym_kNear; sym_kSafecall; sym_kAssembler; sym_kNostackframe; sym_kInterrupt;
   sym_kNoreturn; sym_kIocheck; sym_kLocal; sym_kHardfloat; sym_kSoftfloat; sym_kMs_abi_default;
   sym_kMs_abi_cdecl; sym_kSaveregisters; sym_kSysv_abi_default; sym_kSysv_abi_cdecl;
   sym_kVectorcall; sym_kVarargs; sym_kWinapi; sym_kAlias; sym_kAsm; sym_kBegin; sym_kCase;
   sym_kClass; sym_kConst; sym_kConstructor; sym_kDestructor; sym_kExports; sym_kFor;
   sym_kFunction; sym_kGoto; sym_kIf; sym_kInherited; sym_kLabel; sym_kNil; sym_kNot;
   sym_kProcedure; sym_kProperty; sym_kRaise; sym_kRepeat; sym_kResourcestring; sym_kString;
   sym_kThreadvar; sym_kTry; sym_kType; sym_kUses; sym_kVar; sym_kWhile; sym_kWith]].

(** State 1314. *)
Definition ts_parse_table_1314 : parse_row :=
  [ACTIONS 10932 [anon_sym_SEMI; anon_sym_COMMA; anon_sym_LBRACK];
   ACTIONS 10934 [anon_sym_LPAREN]; ACTIONS 10932 [aux_sym__literalString_token1;
   anon_sym_POUND]; ACTIONS 10934 [aux_sym__literalInt_token1];
   ACTIONS 10932 [aux_sym__literalInt_token2; aux_sym__literalInt_token3];
   ACTIONS 10934 [aux_sym__literalFloat_token1]; ACTIONS 10932 [aux_sym_ppUsesBlock_token1;
   aux_sym_ppUsesBlock_token2; aux_sym_ppUsesBlock_token3]; ACTIONS 10934 [sym_kAdd; sym_kSub];
   ACTIONS 10932 [sym_kAt; sym_kTrue; sym_kFalse]; ACTIONS 3 [sym__space];
   ACTIONS 5 [sym_ppDirective]; ACTIONS 3 [sym_comment]; ACTIONS 10932 [sym_ppFragmentExpr;
   sym__literalStringMultiline; sym_identifier; sym_kDefault; sym_kNodefault; sym_kDispId;
   sym_kGeneric; sym_kSpecialize; sym_kOperator; sym_kPublic; sym_kStatic; sym_kVirtual;
   sym_kAbstract; sym_kDynamic; sym_kOverride; sym_kOverload; sym_kReintroduce; sym_kStdcall;
   sym_kCdecl; sym_kCppdecl; sym_kPascal; sym_kRegister; sym_kMwpascal; sym_kMessage;
   sym_kDeprecated; sym_kExperimental; sym_kPlatform; sym_kUnimplemented; sym_kCvar; sym_kExport;
   sym_kFar; sym_kNear; sym_kSafecall; sym_kAssembler; sym_kNostackframe; sym_kInterrupt;
   sym_kNoreturn; sym_kIocheck; sym_kLocal; sym_kHardfloat; sym_kSoftfloat; sym_kMs_abi_default;
   sym_kMs_abi_cdecl; sym_kSaveregisters; sym_kSysv_abi_default; sym_kSysv_abi_cdecl;
   sym_kVectorcall; sym_kVarargs; sym_kWinapi; sym_kAlias; sym_kAsm; sym_kBegin; sym_kCase;
   sym_kClass; sym_kConst; sym_kConstructor; sym_kDestructor; sym_kExports; sym_kFor;
   sym_kFunction; sym_kGoto; sym_kIf; sym_kInherited; sym_kLabel; sym_kNil; sym_kNot;
   sym_kProcedure; sym_kProperty; sym_kRaise; sym_kRepeat; sym_kResourcestring; sym_kString;
   sym_kThreadvar; sym_kTry; sym_kType; sym_kUses; sym_kVar; sym_kWhile; sym_kWith]].

(** State 1315. *)
Definition ts_parse_table_1315 : parse_row :=
  [ACTIONS 10936 [anon_sym_SEMI; anon_sym_COMMA; anon_sym_LBRACK];
   ACTIONS 10939 [anon_sym_LPAREN]; ACTIONS 10936 [aux_sym__literalString_token1;
   anon_sym_POUND]; ACTIONS 10939 [aux_sym__literalInt_token1];
   ACTIONS 10936 [aux_sym__literalInt_token2; aux_sym__literalInt_token3];
   ACTIONS 10939 [aux_sym__literalFloat_token1]; ACTIONS 10936 [aux_sym_ppUsesBlock_token1;
   aux_sym_ppUsesBlock_token2; aux_sym_ppUsesBlock_token3]; ACTIONS 10939 [sym_kAdd; sym_kSub];
   ACTIONS 10936 [sym_kAt; sym_kTrue; sym_kFalse]; ACTIONS 3 [sym__space];
   ACTIONS 5 [sym_ppDirective]; ACTIONS 3 [sym_comment]; ACTIONS 10936 [sym_ppFragmentExpr;
   sym__literalStringMultiline; sym_identifier; sym_kDefault; sym_kNodefault; sym_kDispId;
   sym_kGeneric; sym_kSpecialize; sym_kOperator; sym_kPublic; sym_kStatic; sym_kVirtual;
   sym_kAbstract; sym_kDynamic; sym_kOverride; sym_kOverload; sym_kReintroduce; sym_kStdcall;
   sym_kCdecl; sym_kCppdecl; sym_kPascal; sym_kRegister; sym_kMwpascal; sym_kMessage;
   sym_kDeprecated; sym_kExperimental; sym_kPlatform; sym_kUnimplemented; sym_kCvar; sym_kExport;
   sym_kFar; sym_kNear; sym_kSafecall; sym_kAssembler; sym_kNostackframe; sym_kInterrupt;
   sym_kNoreturn; sym_kIocheck; sym_kLocal; sym_kHardfloat; sym_kSoftfloat; sym_kMs_abi_default;
   sym_kMs_abi_cdecl; sym_kSaveregisters; sym_kSysv_abi_default; sym_kSysv_abi_cdecl;
   sym_kVectorcall; sym_kVarargs; sym_kWinapi; sym_kAlias; sym_kAsm; sym_kBegin; sym_kCase;
   sym_kClass; sym_kConst; sym_kConstructor; sym_kDestructor; sym_kExports; sym_kFor;
   sym_kFunction; sym_kGoto; sym_kIf; sym_kInherited; sym_kLabel; sym_kNil; sym_kNot;
   sym_kProcedure; sym_kProperty; sym_kRaise; sym_kRepeat; sym_kResourcestring; sym_kString;
   sym_kThreadvar; sym_kTry; sym_kType; sym_kUses; sym_kVar; sym_kWhile; sym_kWith]].

(** State 1316. *)
Definition ts_parse_table_1316 : parse_row :=
  [ACTIONS 10890 [anon_sym_SEMI; anon_sym_COMMA; anon_sym_LBRACK];
   ACTIONS 10892 [anon_sym_LPAREN]; ACTIONS 10890 [aux_sym__literalString_token1;
   anon_sym_POUND]; ACTIONS 10892 [aux_sym__literalInt_token1];
   ACTIONS 10890 [aux_sym__literalInt_token2; aux_sym__literalInt_token3];
   ACTIONS 10892 [aux_sym__literalFloat_token1]; ACTIONS 10890 [aux_sym_ppUsesBlock_token1;
   aux_sym_ppUsesBlock_token2; aux_sym_ppUsesBlock_token3]; ACTIONS 10892 [sym_kAdd; sym_kSub];
   ACTIONS 10890 [sym_kAt; sym_kTrue; sym_kFalse]; ACTIONS 3 [sym__space];
   ACTIONS 5 [sym_ppDirective]; ACTIONS 3 [sym_comment]; ACTIONS 10890 [sym_ppFragmentExpr;
   sym__literalStringMultiline; sym_identifier; sym_kDefault; sym_kNodefault; sym_kDispId;
   sym_kGeneric; sym_kSpecialize; sym_kOperator; sym_kPublic; sym_kStatic; sym_kVirtual;
   sym_kAbstract; sym_kDynamic; sym_kOverride; sym_kOverload; sym_kReintroduce; sym_kStdcall;
   sym_kCdecl; sym_kCppdecl; sym_kPascal; sym_kRegister; sym_kMwpascal; sym_kMessage;
   sym_kDeprecated; sym_kExperimental; sym_kPlatform; sym_kUnimplemented; sym_kCvar; sym_kExport;
   sym_kFar; sym_kNear; sym_kSafecall; sym_kAssembler; sym_kNostackframe; sym_kInterrupt;
   sym_kNoreturn; sym_kIocheck; sym_kLocal; sym_kHardfloat; sym_kSoftfloat; sym_kMs_abi_default;
   sym_kMs_abi_cdecl; sym_kSaveregisters; sym_kSysv_abi_default; sym_kSysv_abi_cdecl;
   sym_kVectorcall; sym_kVarargs; sym_kWinapi; sym_kAlias; sym_kAsm; sym_kBegin; sym_kCase;
   sym_kClass; sym_kConst; sym_kConstructor; sym_kDestructor; sym_kExports; sym_kFor;
   sym_kFunction; sym_kGoto; sym_kIf; sym_kInherited; sym_kLabel; sym_kNil; sym_kNot;
   sym_kProcedure; sym_kProperty; sym_kRaise; sym_kRepeat; sym_kResourcestring; sym_kString;
   sym_kThreadvar; sym_kTry; sym_kType; sym_kUses; sym_kVar; sym_kWhile; sym_kWith]].

(** State 1317. *)
Definition ts_parse_table_1317 : parse_row :=
  [ACTIONS 10842 [anon_sym_SEMI; anon_sym_COMMA; anon_sym_LBRACK];
   ACTIONS 10844 [anon_sym_LPAREN]; ACTIONS 10842 [aux_sym__literalString_token1;
   anon_sym_POUND]; ACTIONS 10844 [aux_sym__literalInt_token1];
   ACTIONS 10842 [aux_sym__literalInt_token2; aux_sym__literalInt_token3];
   ACTIONS 10844 [aux_sym__literalFloat_token1]; ACTIONS 10842 [aux_sym_ppUsesBlock_token1;
   aux_sym_ppUsesBlock_token2; aux_sym_ppUsesBlock_token3]; ACTIONS 10844 [sym_kAdd; sym_kSub];
   ACTIONS 10842 [sym_kAt; sym_kTrue; sym_kFalse]; ACTIONS 3 [sym__space];
   ACTIONS 5 [sym_ppDirective]; ACTIONS 3 [sym_comment]; ACTIONS 10842 [sym_ppFragmentExpr;
   sym__literalStringMultiline; sym_identifier; sym_kDefault; sym_kNodefault; sym_kDispId;
   sym_kGeneric; sym_kSpecialize; sym_kOperator; sym_kPublic; sym_kStatic; sym_kVirtual;
   sym_kAbstract; sym_kDynamic; sym_kOverride; sym_kOverload; sym_kReintroduce; sym_kStdcall;
   sym_kCdecl; sym_kCppdecl; sym_kPascal; sym_kRegister; sym_kMwpascal; sym_kMessage;
   sym_kDeprecated; sym_kExperimental; sym_kPlatform; sym_kUnimplemented; sym_kCvar; sym_kExport;
   sym_kFar; sym_kNear; sym_kSafecall; sym_kAssembler; sym_kNostackframe; sym_kInterrupt;
   sym_kNoreturn; sym_kIocheck; sym_kLocal; sym_kHardfloat; sym_kSoftfloat; sym_kMs_abi_default;
   sym_kMs_abi_cdecl; sym_kSaveregisters; sym_kSysv_abi_default; sym_kSysv_abi_cdecl;
   sym_kVectorcall; sym_kVarargs; sym_kWinapi; sym_kAlias; sym_kAsm; sym_kBegin; sym_kCase;
   sym_kClass; sym_kConst; sym_kConstructor; sym_kDestructor; sym_kExports; sym_kFor;
   sym_kFunction; sym_kGoto; sym_kIf; sym_kInherited; sym_kLabel; sym_kNil; sym_kNot;
   sym_kProcedure; sym_kProperty; sym_kRaise; sym_kRepeat; sym_kResourcestring; sym_kString;
   sym_kThreadvar; sym_kTry; sym_kType; sym_kUses; sym_kVar; sym_kWhile; sym_kWith]].

(** State 1318. *)
Definition ts_parse_table_1318 : parse_row :=
  [ACTIONS 10942 [anon_sym_SEMI; anon_sym_COMMA]; ACTIONS 10944 [anon_sym_LBRACK];
   ACTIONS 10947 [anon_sym_LPAREN]; ACTIONS 10942 [aux_sym__literalString_token1;
   anon_sym_POUND]; ACTIONS 10947 [aux_sym__literalInt_token1];
   ACTIONS 10942 [aux_sym__literalInt_token2; aux_sym__literalInt_token3];
   ACTIONS 10947 [aux_sym__literalFloat_token1]; ACTIONS 10944 [aux_sym_ppUsesBlock_token1];
   ACTIONS 10942 [aux_sym_ppUsesBlock_token2; aux_sym_ppUsesBlock_token3];
   ACTIONS 10947 [sym_kAdd; sym_kSub]; ACTIONS 10942 [sym_kAt; sym_kTrue; sym_kFalse];
   ACTIONS 3 [sym__space]; ACTIONS 5 [sym_ppDirective]; ACTIONS 3 [sym_comment];
   ACTIONS 10942 [sym_ppFragmentExpr; sym__literalStringMultiline; sym_identifier; sym_kDefault;
   sym_kNodefault; sym_kDispId]; ACTIONS 10944 [sym_kGeneric]; ACTIONS 10942 [sym_kSpecialize];
   ACTIONS 10944 [sym_kOperator]; ACTIONS 10942 [sym_kPublic; sym_kStatic; sym_kVirtual;
   sym_kAbstract; sym_kDynamic; sym_kOverride; sym_kOverload; sym_kReintroduce; sym_kStdcall;
   sym_kCdecl; sym_kCppdecl; sym_kPascal; sym_kRegister; sym_kMwpascal; sym_kMessage;
   sym_kDeprecated; sym_kExperimental; sym_kPlatform; sym_kUnimplemented; sym_kCvar; sym_kExport;
   sym_kFar; sym_kNear; sym_kSafecall; sym_kAssembler; sym_kNostackframe; sym_kInterrupt;
   sym_kNoreturn; sym_kIocheck; sym_kLocal; sym_kHardfloat; sym_kSoftfloat; sym_kMs_abi_default;
   sym_kMs_abi_cdecl; sym_kSaveregisters; sym_kSysv_abi_default; sym_kSysv_abi_cdecl;
   sym_kVectorcall; sym_kVarargs; sym_kWinapi; sym_kAlias]; ACTIONS 10944 [sym_kAsm; sym_kBegin];
   ACTIONS 10942 [sym_kCase]; ACTIONS 10944 [sym_kClass; sym_kConst; sym_kConstructor;
   sym_kDestructor; sym_kExports]; ACTIONS 10942 [sym_kFor]; ACTIONS 10944 [sym_kFunction];
   ACTIONS 10942 [sym_kGoto; sym_kIf; sym_kInherited]; ACTIONS 10944 [sym_kLabel];
   ACTIONS 10942 [sym_kNil; sym_kNot]; ACTIONS 10944 [sym_kProcedure];
   ACTIONS 10942 [sym_kProperty; sym_kRaise; sym_kRepeat]; ACTIONS 10944 [sym_kResourcestring];
   ACTIONS 10942 [sym_kString]; ACTIONS 10944 [sym_kThreadvar]; ACTIONS 10942 [sym_kTry];
   ACTIONS 10944 [sym_kType; sym_kUses; sym_kVar]; ACTIONS 10942 [sym_kWhile; sym_kWith]].

(** State 1319. *)
Definition ts_parse_table_1319 : parse_row :=
  [ACTIONS 10882 [anon_sym_SEMI; anon_sym_COMMA; anon_sym_LBRACK];
   ACTIONS 10884 [anon_sym_LPAREN]; ACTIONS 10882 [aux_sym__literalString_token1;
   anon_sym_POUND]; ACTIONS 10884 [aux_sym__literalInt_token1];
   ACTIONS 10882 [aux_sym__literalInt_token2; aux_sym__literalInt_token3];
   ACTIONS 10884 [aux_sym__literalFloat_token1]; ACTIONS 10882 [aux_sym_ppUsesBlock_token1;
   aux_sym_ppUsesBlock_token2; aux_sym_ppUsesBlock_token3]; ACTIONS 10884 [sym_kAdd; sym_kSub];
   ACTIONS 10882 [sym_kAt; sym_kTrue; sym_kFalse]; ACTIONS 3 [sym__space];
   ACTIONS 5 [sym_ppDirective]; ACTIONS 3 [sym_comment]; ACTIONS 10882 [sym_ppFragmentExpr;
   sym__literalStringMultiline; sym_identifier; sym_kDefault; sym_kNodefault; sym_kDispId;
   sym_kGeneric; sym_kSpecialize; sym_kOperator; sym_kPublic; sym_kStatic; sym_kVirtual;
   sym_kAbstract; sym_kDynamic; sym_kOverride; sym_kOverload; sym_kReintroduce; sym_kStdcall;
   sym_kCdecl; sym_kCppdecl; sym_kPascal; sym_kRegister; sym_kMwpascal; sym_kMessage;
   sym_kDeprecated; sym_kExperimental; sym_kPlatform; sym_kUnimplemented; sym_kCvar; sym_kExport;
   sym_kFar; sym_kNear; sym_kSafecall; sym_kAssembler; sym_kNostackframe; sym_kInterrupt;
   sym_kNoreturn; sym_kIocheck; sym_kLocal; sym_kHardfloat; sym_kSoftfloat; sym_kMs_abi_default;
   sym_kMs_abi_cdecl; sym_kSaveregisters; sym_kSysv_abi_default; sym_kSysv_abi_cdecl;
   sym_kVectorcall; sym_kVarargs; sym_kWinapi; sym_kAlias; sym_kAsm; sym_kBegin; sym_kCase;
   sym_kClass; sym_kConst; sym_kConstructor; sym_kDestructor; sym_kExports; sym_kFor;
   sym_kFunction; sym_kGoto; sym_kIf; sym_kInherited; sym_kLabel; sym_kNil; sym_kNot;
   sym_kProcedure; sym_kProperty; sym_kRaise; sym_kRepeat; sym_kResourcestring; sym_kString;
   sym_kThreadvar; sym_kTry; sym_kType; sym_kUses; sym_kVar; sym_kWhile; sym_kWith]].

(** State 1320. *)
Definition ts_parse_table_1320 : parse_row :=
  [ACTIONS 10949 [anon_sym_SEMI; anon_sym_COMMA; anon_sym_LBRACK];
   ACTIONS 10951 [anon_sym_LPAREN]; ACTIONS 10949 [aux_sym__literalString_token1;
   anon_sym_POUND]; ACTIONS 10951 [aux_sym__literalInt_token1];
   ACTIONS 10949 [aux_sym__literalInt_token2; aux_sym__literalInt_token3];
   ACTIONS 10951 [aux_sym__literalFloat_token1]; ACTIONS 10949 [aux_sym_ppUsesBlock_token1;
   aux_sym_ppUsesBlock_token2; aux_sym_ppUsesBlock_token3]; ACTIONS 10951 [sym_kAdd; sym_kSub];
   ACTIONS 10949 [sym_kAt; sym_kTrue; sym_kFalse]; ACTIONS 3 [sym__space];
   ACTIONS 5 [sym_ppDirective]; ACTIONS 3 [sym_comment]; ACTIONS 10949 [sym_ppFragmentExpr;
   sym__literalStringMultiline; sym_identifier; sym_kDefault; sym_kNodefault; sym_kDispId;
   sym_kGeneric; sym_kSpecialize; sym_kOperator; sym_kPublic; sym_kStatic; sym_kVirtual;
   sym_kAbstract; sym_kDynamic; sym_kOverride; sym_kOverload; sym_kReintroduce; sym_kStdcall;
   sym_kCdecl; sym_kCppdecl; sym_kPascal; sym_kRegister; sym_kMwpascal; sym_kMessage;
   sym_kDeprecated; sym_kExperimental; sym_kPlatform; sym_kUnimplemented; sym_kCvar; sym_kExport;
   sym_kFar; sym_kNear; sym_kSafecall; sym_kAssembler; sym_kNostackframe; sym_kInterrupt;
   sym_kNoreturn; sym_kIocheck; sym_kLocal; sym_kHardfloat; sym_kSoftfloat; sym_kMs_abi_default;
   sym_kMs_abi_cdecl; sym_kSaveregisters; sym_kSysv_abi_default; sym_kSysv_abi_cdecl;
   sym_kVectorcall; sym_kVarargs; sym_kWinapi; sym_kAlias; sym_kAsm; sym_kBegin; sym_kCase;
   sym_kClass; sym_kConst; sym_kConstructor; sym_kDestructor; sym_kExports; sym_kFor;
   sym_kFunction; sym_kGoto; sym_kIf; sym_kInherited; sym_kLabel; sym_kNil; sym_kNot;
   sym_kProcedure; sym_kProperty; sym_kRaise; sym_kRepeat; sym_kResourcestring; sym_kString;
   sym_kThreadvar; sym_kTry; sym_kType; sym_kUses; sym_kVar; sym_kWhile; sym_kWith]].

(** State 1321. *)
Definition ts_parse_table_1321 : parse_row :=
  [ACTIONS 10953 [anon_sym_SEMI; anon_sym_COMMA; anon_sym_LBRACK];
   ACTIONS 10955 [anon_sym_LPAREN]; ACTIONS 10953 [aux_sym__literalString_token1;
   anon_sym_POUND]; ACTIONS 10955 [aux_sym__literalInt_token1];
   ACTIONS 10953 [aux_sym__literalInt_token2; aux_sym__literalInt_token3];
   ACTIONS 10955 [aux_sym__literalFloat_token1]; ACTIONS 10953 [aux_sym_ppUsesBlock_token1;
   aux_sym_ppUsesBlock_token2; aux_sym_ppUsesBlock_token3]; ACTIONS 10955 [sym_kAdd; sym_kSub];
   ACTIONS 10953 [sym_kAt; sym_kTrue; sym_kFalse]; ACTIONS 3 [sym__space];
   ACTIONS 5 [sym_ppDirective]; ACTIONS 3 [sym_comment]; ACTIONS 10953 [sym_ppFragmentExpr;
   sym__literalStringMultiline; sym_identifier; sym_kDefault; sym_kNodefault; sym_kDispId;
   sym_kGeneric; sym_kSpecialize; sym_kOperator; sym_kPublic; sym_kStatic; sym_kVirtual;
   sym_kAbstract; sym_kDynamic; sym_kOverride; sym_kOverload; sym_kReintroduce; sym_kStdcall;
   sym_kCdecl; sym_kCppdecl; sym_kPascal; sym_kRegister; sym_kMwpascal; sym_kMessage;
   sym_kDeprecated; sym_kExperimental; sym_kPlatform; sym_kUnimplemented; sym_kCvar; sym_kExport;
   sym_kFar; sym_kNear; sym_kSafecall; sym_kAssembler; sym_kNostackframe; sym_kInterrupt;
   sym_kNoreturn; sym_kIocheck; sym_kLocal; sym_kHardfloat; sym_kSoftfloat; sym_kMs_abi_default;
   sym_kMs_abi_cdecl; sym_kSaveregisters; sym_kSysv_abi_default; sym_kSysv_abi_cdecl;
   sym_kVectorcall; sym_kVarargs; sym_kWinapi; sym_kAlias; sym_kAsm; sym_kBegin; sym_kCase;
   sym_kClass; sym_kConst; sym_kConstructor; sym_kDestructor; sym_kExports; sym_kFor;
   sym_kFunction; sym_kGoto; sym_kIf; sym_kInherited; sym_kLabel; sym_kNil; sym_kNot;
   sym_kProcedure; sym_kProperty; sym_kRaise; sym_kRepeat; sym_kResourcestring; sym_kString;
   sym_kThreadvar; sym_kTry; sym_kType; sym_kUses; sym_kVar; sym_kWhile; sym_kWith]].

(** State 1322. *)
Definition ts_parse_table_1322 : parse_row :=
  [ACTIONS 10957 [anon_sym_SEMI; anon_sym_COMMA; anon_sym_LBRACK];
   ACTIONS 10959 [anon_sym_LPAREN]; ACTIONS 10957 [aux_sym__literalString_token1;
   anon_sym_POUND]; ACTIONS 10959 [aux_sym__literalInt_token1];
   ACTIONS 10957 [aux_sym__literalInt_token2; aux_sym__literalInt_token3];
   ACTIONS 10959 [aux_sym__literalFloat_token1]; ACTIONS 10957 [aux_sym_ppUsesBlock_token1;
   aux_sym_ppUsesBlock_token2; aux_sym_ppUsesBlock_token3]; ACTIONS 10959 [sym_kAdd; sym_kSub];
   ACTIONS 10957 [sym_kAt; sym_kTrue; sym_kFalse]; ACTIONS 3 [sym__space];
   ACTIONS 5 [sym_ppDirective]; ACTIONS 3 [sym_comment]; ACTIONS 10957 [sym_ppFragmentExpr;
   sym__literalStringMultiline; sym_identifier; sym_kDefault; sym_kNodefault; sym_kDispId;
   sym_kGeneric; sym_kSpecialize; sym_kOperator; sym_kPublic; sym_kStatic; sym_kVirtual;
   sym_kAbstract; sym_kDynamic; sym_kOverride; sym_kOverload; sym_kReintroduce; sym_kStdcall;
   sym_kCdecl; sym_kCppdecl; sym_kPascal; sym_kRegister; sym_kMwpascal; sym_kMessage;
   sym_kDeprecated; sym_kExperimental; sym_kPlatform; sym_kUnimplemented; sym_kCvar; sym_kExport;
   sym_kFar; sym_kNear; sym_kSafecall; sym_kAssembler; sym_kNostackframe; sym_kInterrupt;
   sym_kNoreturn; sym_kIocheck; sym_kLocal; sym_kHardfloat; sym_kSoftfloat; sym_kMs_abi_default;
   sym_kMs_abi_cdecl; sym_kSaveregisters; sym_kSysv_abi_default; sym_kSysv_abi_cdecl;
   sym_kVectorcall; sym_kVarargs; sym_kWinapi; sym_kAlias; sym_kAsm; sym_kBegin; sym_kCase;
   sym_kClass; sym_kConst; sym_kConstructor; sym_kDestructor; sym_kExports; sym_kFor;
   sym_kFunction; sym_kGoto; sym_kIf; sym_kInherited; sym_kLabel; sym_kNil; sym_kNot;
   sym_kProcedure; sym_kProperty; sym_kRaise; sym_kRepeat; sym_kResourcestring; sym_kString;
   sym_kThreadvar; sym_kTry; sym_kType; sym_kUses; sym_kVar; sym_kWhile; sym_kWith]].

(** State 1323. *)
Definition ts_parse_table_1323 : parse_row :=
  [ACTIONS 10961 [anon_sym_SEMI; anon_sym_COMMA; anon_sym_LBRACK];
   ACTIONS 10963 [anon_sym_LPAREN]; ACTIONS 10961 [aux_sym__literalString_token1;
   anon_sym_POUND]; ACTIONS 10963 [aux_sym__literalInt_token1];
   ACTIONS 10961 [aux_sym__literalInt_token2; aux_sym__literalInt_token3];
   ACTIONS 10963 [aux_sym__literalFloat_token1]; ACTIONS 10961 [aux_sym_ppUsesBlock_token1;
   aux_sym_ppUsesBlock_token2; aux_sym_ppUsesBlock_token3]; ACTIONS 10963 [sym_kAdd; sym_kSub];
   ACTIONS 10961 [sym_kAt; sym_kTrue; sym_kFalse]; ACTIONS 3 [sym__space];
   ACTIONS 5 [sym_ppDirective]; ACTIONS 3 [sym_comment]; ACTIONS 10961 [sym_ppFragmentExpr;
   sym__literalStringMultiline; sym_identifier; sym_kDefault; sym_kNodefault; sym_kDispId;
   sym_kGeneric; sym_kSpecialize; sym_kOperator; sym_kPublic; sym_kStatic; sym_kVirtual;
   sym_kAbstract; sym_kDynamic; sym_kOverride; sym_kOverload; sym_kReintroduce; sym_kStdcall;
   sym_kCdecl; sym_kCppdecl; sym_kPascal; sym_kRegister; sym_kMwpascal; sym_kMessage;
   sym_kDeprecated; sym_kExperimental; sym_kPlatform; sym_kUnimplemented; sym_kCvar; sym_kExport;
   sym_kFar; sym_kNear; sym_kSafecall; sym_kAssembler; sym_kNostackframe; sym_kInterrupt;
   sym_kNoreturn; sym_kIocheck; sym_kLocal; sym_kHardfloat; sym_kSoftfloat; sym_kMs_abi_default;
   sym_kMs_abi_cdecl; sym_kSaveregisters; sym_kSysv_abi_default; sym_kSysv_abi_cdecl;
   sym_kVectorcall; sym_kVarargs; sym_kWinapi; sym_kAlias; sym_kAsm; sym_kBegin; sym_kCase;
   sym_kClass; sym_kConst; sym_kConstructor; sym_kDestructor; sym_kExports; sym_kFor;
   sym_kFunction; sym_kGoto; sym_kIf; sym_kInherited; sym_kLabel; sym_kNil; sym_kNot;
   sym_kProcedure; sym_kProperty; sym_kRaise; sym_kRepeat; sym_kResourcestring; sym_kString;
   sym_kThreadvar; sym_kTry; sym_kType; sym_kUses; sym_kVar; sym_kWhile; sym_kWith]].

Definition ts_parse_table_part7 : list parse_row :=
  [
   ts_parse_table_1109; ts_parse_table_1110; ts_parse_table_1111; ts_parse_table_1112;
   ts_parse_table_1113; ts_parse_table_1114; ts_parse_table_1115; ts_parse_table_1116;
   ts_parse_table_1117; ts_parse_table_1118; ts_parse_table_1119; ts_parse_table_1120;
   ts_parse_table_1121; ts_parse_table_1122; ts_parse_table_1123; ts_parse_table_1124;
   ts_parse_table_1125; ts_parse_table_1126; ts_parse_table_1127; ts_parse_table_1128;
   ts_parse_table_1129; ts_parse_table_1130; ts_parse_table_1131; ts_parse_table_1132;
   ts_parse_table_1133; ts_parse_table_1134; ts_parse_table_1135; ts_parse_table_1136;
   ts_parse_table_1137; ts_parse_table_1138; ts_parse_table_1139; ts_parse_table_1140;
   ts_parse_table_1141; ts_parse_table_1142; ts_parse_table_1143; ts_parse_table_1144;
   ts_parse_table_1145; ts_parse_table_1146; ts_parse_table_1147; ts_parse_table_1148;
   ts_parse_table_1149; ts_parse_table_1150; ts_parse_table_1151; ts_parse_table_1152;
   ts_parse_table_1153; ts_parse_table_1154; ts_parse_table_1155; ts_parse_table_1156;
   ts_parse_table_1157; ts_parse_table_1158; ts_parse_table_1159; ts_parse_table_1160;
   ts_parse_table_1161; ts_parse_table_1162; ts_parse_table_1163; ts_parse_table_1164;
   ts_parse_table_1165; ts_parse_table_1166; ts_parse_table_1167; ts_parse_table_1168;
   ts_parse_table_1169; ts_parse_table_1170; ts_parse_table_1171; ts_parse_table_1172;
   ts_parse_table_1173; ts_parse_table_1174; ts_parse_table_1175; ts_parse_table_1176;
   ts_parse_table_1177; ts_parse_table_1178; ts_parse_table_1179; ts_parse_table_1180;
   ts_parse_table_1181; ts_parse_table_1182; ts_parse_table_1183; ts_parse_table_1184;
   ts_parse_table_1185; ts_parse_table_1186; ts_parse_table_1187; ts_parse_table_1188;
   ts_parse_table_1189; ts_parse_table_1190; ts_parse_table_1191; ts_parse_table_1192;
   ts_parse_table_1193; ts_parse_table_1194; ts_parse_table_1195; ts_parse_table_1196;
   ts_parse_table_1197; ts_parse_table_1198; ts_parse_table_1199; ts_parse_table_1200;
   ts_parse_table_1201; ts_parse_table_1202; ts_parse_table_1203; ts_parse_table_1204;
   ts_parse_table_1205; ts_parse_table_1206; ts_parse_table_1207; ts_parse_table_1208;
   ts_parse_table_1209; ts_parse_table_1210; ts_parse_table_1211; ts_parse_table_1212;
   ts_parse_table_1213; ts_parse_table_1214; ts_parse_table_1215; ts_parse_table_1216;
   ts_parse_table_1217; ts_parse_table_1218; ts_parse_table_1219; ts_parse_table_1220;
   ts_parse_table_1221; ts_parse_table_1222; ts_parse_table_1223; ts_parse_table_1224;
   ts_parse_table_1225; ts_parse_table_1226; ts_parse_table_1227; ts_parse_table_1228;
   ts_parse_table_1229; ts_parse_table_1230; ts_parse_table_1231; ts_parse_table_1232;
   ts_parse_table_1233; ts_parse_table_1234; ts_parse_table_1235; ts_parse_table_1236;
   ts_parse_table_1237; ts_parse_table_1238; ts_parse_table_1239; ts_parse_table_1240;
   ts_parse_table_1241; ts_parse_table_1242; ts_parse_table_1243; ts_parse_table_1244;
   ts_parse_table_1245; ts_parse_table_1246; ts_parse_table_1247; ts_parse_table_1248;
   ts_parse_table_1249; ts_parse_table_1250; ts_parse_table_1251; ts_parse_table_1252;
   ts_parse_table_1253; ts_parse_table_1254; ts_parse_table_1255; ts_parse_table_1256;
   ts_parse_table_1257; ts_parse_table_1258; ts_parse_table_1259; ts_parse_table_1260;
   ts_parse_table_1261; ts_parse_table_1262; ts_parse_table_1263; ts_parse_table_1264;
   ts_parse_table_1265; ts_parse_table_1266; ts_parse_table_1267; ts_parse_table_1268;
   ts_parse_table_1269; ts_parse_table_1270; ts_parse_table_1271; ts_parse_table_1272;
   ts_parse_table_1273; ts_parse_table_1274; ts_parse_table_1275; ts_parse_table_1276;
   ts_parse_table_1277; ts_parse_table_1278; ts_parse_table_1279; ts_parse_table_1280;
   ts_parse_table_1281; ts_parse_table_1282; ts_parse_table_1283; ts_parse_table_1284;
   ts_parse_table_1285; ts_parse_table_1286; ts_parse_table_1287; ts_parse_table_1288;
   ts_parse_table_1289; ts_parse_table_1290; ts_parse_table_1291; ts_parse_table_1292;
   ts_parse_table_1293; ts_parse_table_1294; ts_parse_table_1295; ts_parse_table_1296;
   ts_parse_table_1297; ts_parse_table_1298; ts_parse_table_1299; ts_parse_table_1300;
   ts_parse_table_1301; ts_parse_table_1302; ts_parse_table_1303; ts_parse_table_1304;
   ts_parse_table_1305; ts_parse_table_1306; ts_parse_table_1307; ts_parse_table_1308;
   ts_parse_table_1309; ts_parse_table_1310; ts_parse_table_1311; ts_parse_table_1312;
   ts_parse_table_1313; ts_parse_table_1314; ts_parse_table_1315; ts_parse_table_1316;
   ts_parse_table_1317; ts_parse_table_1318; ts_parse_table_1319; ts_parse_table_1320;
   ts_parse_table_1321; ts_parse_table_1322; ts_parse_table_1323
  ].
