(* ===== verification/ParseTable8.v ===== *)
(** * The parse table of [parser.c], states 1324 to 1571

    One definition for each row of [ts_parse_table], with the initializers of
    the row in the order of the source; consecutive initializers of the same
    value are one group. *)

From S2P Require Import Prelude.
From S2P Require Import Symbols.
From S2P Require Import ParseTypes.

(** State 1324. *)
Definition ts_parse_table_1324 : parse_row :=
  [ACTIONS 10778 [anon_sym_SEMI; anon_sym_COMMA; anon_sym_LBRACK];
   ACTIONS 10780 [anon_sym_LPAREN]; ACTIONS 10778 [aux_sym__literalString_token1;
   anon_sym_POUND]; ACTIONS 10780 [aux_sym__literalInt_token1];
   ACTIONS 10778 [aux_sym__literalInt_token2; aux_sym__literalInt_token3];
   ACTIONS 10780 [aux_sym__literalFloat_token1]; ACTIONS 10778 [aux_sym_ppUsesBlock_token1;
   aux_sym_ppUsesBlock_token2; aux_sym_ppUsesBlock_token3]; ACTIONS 10780 [sym_kAdd; sym_kSub];
   ACTIONS 10778 [sym_kAt; sym_kTrue; sym_kFalse]; ACTIONS 3 [sym__space];
   ACTIONS 5 [sym_ppDirective]; ACTIONS 3 [sym_comment]; ACTIONS 10778 [sym_ppFragmentExpr;
   sym__literalStringMultiline; sym_identifier; sym_kDefault; sym_kNodefault; sym_kDispId;
   sym_kGeneric; sym_kSpecialize; sym_kOperator; sym_kPublic; sym_kStatic; sym_kVirtual;
   sym_kAbstract; sym_kDynamic; sym_kOverride; sym_kOverload; sym_kReintroduce; sym_kStdcall;
   sym_kCdecl; sym_kCppdecl; sym_kPascal; sym_kRegister; sym_kMwpascal; sym_kMessage;
   sym_kDeprecated; sym_kExperimental; sym_kPlatform; sym_kUnimplemented; sym_kCvar; sym_kExport;
   sym_kFar; sym_kNear; sym_kSafecall; sym_kAssembler; sym_kNostackframe; sym_kInterrupt;
   sym_kNoreturn; sym_kIocheck; sym_kLocal; sym_kHardfloat; sym_kSoftfloat; sym_kMs_abi_default;
   sym_kMs_abi_cdecl; sym_kSaveregisters; sym_kSysv_abi_default; sym_kSysv_abi_cdecl;
   sym_kVectorcall; sym_kVarargs; sym_kWinapi; sym_kAlias; sym_kAsm; sym_kBegin; sym_kCase;
   sym_kClass; sym_kConst; sym_kConstructor; sym_kDestructor; sym_kExports; sym_kFor;
   sym_kFunction; sym_kGoto; sym_kIf; sym_kInherited; sym_kLabel; sym_kNil; sym_kNot;
   sym_kProcedure; sym_kProperty; sym_kRaise; sym_kRepeat; sym_kResourcestring; sym_kString;
   sym_kThreadvar; sym_kTry; sym_kType; sym_kUses; sym_kVar; sym_kWhile; sym_kWith]].

(** State 1325. *)
Definition ts_parse_table_1325 : parse_row :=
  [ACTIONS 10965 [anon_sym_SEMI; anon_sym_COMMA; anon_sym_LBRACK];
   ACTIONS 10967 [anon_sym_LPAREN]; ACTIONS 10965 [aux_sym__literalString_token1;
   anon_sym_POUND]; ACTIONS 10967 [aux_sym__literalInt_token1];
   ACTIONS 10965 [aux_sym__literalInt_token2; aux_sym__literalInt_token3];
   ACTIONS 10967 [aux_sym__literalFloat_token1]; ACTIONS 10965 [aux_sym_ppUsesBlock_token1;
   aux_sym_ppUsesBlock_token2; aux_sym_ppUsesBlock_token3]; ACTIONS 10967 [sym_kAdd; sym_kSub];
   ACTIONS 10965 [sym_kAt; sym_kTrue; sym_kFalse]; ACTIONS 3 [sym__space];
   ACTIONS 5 [sym_ppDirective]; ACTIONS 3 [sym_comment]; ACTIONS 10965 [sym_ppFragmentExpr;
   sym__literalStringMultiline; sym_identifier; sym_kDefault; sym_kNodefault; sym_kDispId;
   sym_kGeneric; sym_kSpecialize; sym_kOperator; sym_kPublic; sym_kStatic; sym_kVirtual;
   sym_kAbstract; sym_kDynamic; sym_kOverride; sym_kOverload; sym_kReintroduce; sym_kStdcall;
   sym_kCdecl; sym_kCppdecl; sym_kPascal; sym_kRegister; sym_kMwpascal; sym_kMessage;
   sym_kDeprecated; sym_kExperimental; sym_kPlatform; sym_kUnimplemented; sym_kCvar; sym_kExport;
   sym_kFar; sym_kNear; sym_kSafecall; sym_kAssembler; sym_kNostackframe; sym_kInterrupt;
   sym_kNoreturn; sym_kIocheck; sym_kLocal; sym_kHardfloat; sym_kSoftfloat; sym_kMs_abi_default;
   sym_kMs_abi_cdecl; sym_kSaveregisters; sym_kSysv_abi_default; sym_kSysv_abi_cdecl;
   sym_kVectorcall; sym_kVarargs; sym_kWinapi; sym_kAlias; sym_kAsm; sym_kBegin; sym_kCase;
   sym_kClass; sym_kConst; sym_kConstructor; sym_kDestructor; sym_kExports; sym_kFor;
   sym_kFunction; sym_kGoto; sym_kIf; sym_kInherited; sym_kLabel; sym_kNil; sym_kNot;
   sym_kProcedure; sym_kProperty; sym_kRaise; sym_kRepeat; sym_kResourcestring; sym_kString;
   sym_kThreadvar; sym_kTry; sym_kType; sym_kUses; sym_kVar; sym_kWhile; sym_kWith]].

(** State 1326. *)
Definition ts_parse_table_1326 : parse_row :=
  [ACTIONS 10969 [anon_sym_SEMI; anon_sym_COMMA; anon_sym_LBRACK];
   ACTIONS 10971 [anon_sym_LPAREN]; ACTIONS 10969 [aux_sym__literalString_token1;
   anon_sym_POUND]; ACTIONS 10971 [aux_sym__literalInt_token1];
   ACTIONS 10969 [aux_sym__literalInt_token2; aux_sym__literalInt_token3];
   ACTIONS 10971 [aux_sym__literalFloat_token1]; ACTIONS 10969 [aux_sym_ppUsesBlock_token1;
   aux_sym_ppUsesBlock_token2; aux_sym_ppUsesBlock_token3]; ACTIONS 10971 [sym_kAdd; sym_kSub];
   ACTIONS 10969 [sym_kAt; sym_kTrue; sym_kFalse]; ACTIONS 3 [sym__space];
   ACTIONS 5 [sym_ppDirective]; ACTIONS 3 [sym_comment]; ACTIONS 10969 [sym_ppFragmentExpr;
   sym__literalStringMultiline; sym_identifier; sym_kDefault; sym_kNodefault; sym_kDispId;
   sym_kGeneric; sym_kSpecialize; sym_kOperator; sym_kPublic; sym_kStatic; sym_kVirtual;
   sym_kAbstract; sym_kDynamic; sym_kOverride; sym_kOverload; sym_kReintroduce; sym_kStdcall;
   sym_kCdecl; sym_kCppdecl; sym_kPascal; sym_kRegister; sym_kMwpascal; sym_kMessage;
   sym_kDeprecated; sym_kExperimental; sym_kPlatform; sym_kUnimplemented; sym_kCvar; sym_kExport;
   sym_kFar; sym_kNear; sym_kSafecall; sym_kAssembler; sym_kNostackframe; sym_kInterrupt;
   sym_kNoreturn; sym_kIocheck; sym_kLocal; sym_kHardfloat; sym_kSoftfloat; sym_kMs_abi_default;
   sym_kMs_abi_cdecl; sym_kSaveregisters; sym_kSysv_abi_default; sym_kSysv_abi_cdecl;
   sym_kVectorcall; sym_kVarargs; sym_kWinapi; sym_kAlias; sym_kAsm; sym_kBegin; sym_kCase;
   sym_kClass; sym_kConst; sym_kConstructor; sym_kDestructor; sym_kExports; sym_kFor;
   sym_kFunction; sym_kGoto; sym_kIf; sym_kInherited; sym_kLabel; sym_kNil; sym_kNot;
   sym_kProcedure; sym_kProperty; sym_kRaise; sym_kRepeat; sym_kResourcestring; sym_kString;
   sym_kThreadvar; sym_kTry; sym_kType; sym_kUses; sym_kVar; sym_kWhile; sym_kWith]].

(** State 1327. *)
Definition ts_parse_table_1327 : parse_row :=
  [ACTIONS 10973 [anon_sym_SEMI; anon_sym_COMMA; anon_sym_LBRACK];
   ACTIONS 10975 [anon_sym_LPAREN]; ACTIONS 10973 [aux_sym__literalString_token1;
   anon_sym_POUND]; ACTIONS 10975 [aux_sym__literalInt_token1];
   ACTIONS 10973 [aux_sym__literalInt_token2; aux_sym__literalInt_token3];
   ACTIONS 10975 [aux_sym__literalFloat_token1]; ACTIONS 10973 [aux_sym_ppUsesBlock_token1;
   aux_sym_ppUsesBlock_token2; aux_sym_ppUsesBlock_token3]; ACTIONS 10975 [sym_kAdd; sym_kSub];
   ACTIONS 10973 [sym_kAt; sym_kTrue; sym_kFalse]; ACTIONS 3 [sym__space];
   ACTIONS 5 [sym_ppDirective]; ACTIONS 3 [sym_comment]; ACTIONS 10973 [sym_ppFragmentExpr;
   sym__literalStringMultiline; sym_identifier; sym_kDefault; sym_kNodefault; sym_kDispId;
   sym_kGeneric; sym_kSpecialize; sym_kOperator; sym_kPublic; sym_kStatic; sym_kVirtual;
   sym_kAbstract; sym_kDynamic; sym_kOverride; sym_kOverload; sym_kReintroduce; sym_kStdcall;
   sym_kCdecl; sym_kCppdecl; sym_kPascal; sym_kRegister; sym_kMwpascal; sym_kMessage;
   sym_kDeprecated; sym_kExperimental; sym_kPlatform; sym_kUnimplemented; sym_kCvar; sym_kExport;
   sym_kFar; sym_kNear; sym_kSafecall; sym_kAssembler; sym_kNostackframe; sym_kInterrupt;
   sym_kNoreturn; sym_kIocheck; sym_kLocal; sym_kHardfloat; sym_kSoftfloat; sym_kMs_abi_default;
   sym_kMs_abi_cdecl; sym_kSaveregisters; sym_kSysv_abi_default; sym_kSysv_abi_cdecl;
   sym_kVectorcall; sym_kVarargs; sym_kWinapi; sym_kAlias; sym_kAsm; sym_kBegin; sym_kCase;
   sym_kClass; sym_kConst; sym_kConstructor; sym_kDestructor; sym_kExports; sym_kFor;
   sym_kFunction; sym_kGoto; sym_kIf; sym_kInherited; sym_kLabel; sym_kNil; sym_kNot;
   sym_kProcedure; sym_kProperty; sym_kRaise; sym_kRepeat; sym_kResourcestring; sym_kString;
   sym_kThreadvar; sym_kTry; sym_kType; sym_kUses; sym_kVar; sym_kWhile; sym_kWith]].

(** State 1328. *)
Definition ts_parse_table_1328 : parse_row :=
  [ACTIONS 10977 [anon_sym_SEMI; anon_sym_COMMA; anon_sym_LBRACK];
   ACTIONS 10979 [anon_sym_LPAREN]; ACTIONS 10977 [aux_sym__literalString_token1;
   anon_sym_POUND]; ACTIONS 10979 [aux_sym__literalInt_token1];
   ACTIONS 10977 [aux_sym__literalInt_token2; aux_sym__literalInt_token3];
   ACTIONS 10979 [aux_sym__literalFloat_token1]; ACTIONS 10977 [aux_sym_ppUsesBlock_token1;
   aux_sym_ppUsesBlock_token2; aux_sym_ppUsesBlock_token3]; ACTIONS 10979 [sym_kAdd; sym_kSub];
   ACTIONS 10977 [sym_kAt; sym_kTrue; sym_kFalse]; ACTIONS 3 [sym__space];
   ACTIONS 5 [sym_ppDirective]; ACTIONS 3 [sym_comment]; ACTIONS 10977 [sym_ppFragmentExpr;
   sym__literalStringMultiline; sym_identifier; sym_kDefault; sym_kNodefault; sym_kDispId;
   sym_kGeneric; sym_kSpecialize; sym_kOperator; sym_kPublic; sym_kStatic; sym_kVirtual;
   sym_kAbstract; sym_kDynamic; sym_kOverride; sym_kOverload; sym_kReintroduce; sym_kStdcall;
   sym_kCdecl; sym_kCppdecl; sym_kPascal; sym_kRegister; sym_kMwpascal; sym_kMessage;
   sym_kDeprecated; sym_kExperimental; sym_kPlatform; sym_kUnimplemented; sym_kCvar; sym_kExport;
   sym_kFar; sym_kNear; sym_kSafecall; sym_kAssembler; sym_kNostackframe; sym_kInterrupt;
   sym_kNoreturn; sym_kIocheck; sym_kLocal; sym_kHardfloat; sym_kSoftfloat; sym_kMs_abi_default;
   sym_kMs_abi_cdecl; sym_kSaveregisters; sym_kSysv_abi_default; sym_kSysv_abi_cdecl;
   sym_kVectorcall; sym_kVarargs; sym_kWinapi; sym_kAlias; sym_kAsm; sym_kBegin; sym_kCase;
   sym_kClass; sym_kConst; sym_kConstructor; sym_kDestructor; sym_kExports; sym_kFor;
   sym_kFunction; sym_kGoto; sym_kIf; sym_kInherited; sym_kLabel; sym_kNil; sym_kNot;
   sym_kProcedure; sym_kProperty; sym_kRaise; sym_kRepeat; sym_kResourcestring; sym_kString;
   sym_kThreadvar; sym_kTry; sym_kType; sym_kUses; sym_kVar; sym_kWhile; sym_kWith]].

(** State 1329. *)
Definition ts_parse_table_1329 : parse_row :=
  [ACTIONS 10981 [anon_sym_SEMI; anon_sym_COMMA; anon_sym_LBRACK];
   ACTIONS 10983 [anon_sym_LPAREN]; ACTIONS 10981 [aux_sym__literalString_token1;
   anon_sym_POUND]; ACTIONS 10983 [aux_sym__literalInt_token1];
   ACTIONS 10981 [aux_sym__literalInt_token2; aux_sym__literalInt_token3];
   ACTIONS 10983 [aux_sym__literalFloat_token1]; ACTIONS 10981 [aux_sym_ppUsesBlock_token1;
   aux_sym_ppUsesBlock_token2; aux_sym_ppUsesBlock_token3]; ACTIONS 10983 [sym_kAdd; sym_kSub];
   ACTIONS 10981 [sym_kAt; sym_kTrue; sym_kFalse]; ACTIONS 3 [sym__space];
   ACTIONS 5 [sym_ppDirective]; ACTIONS 3 [sym_comment]; ACTIONS 10981 [sym_ppFragmentExpr;
   sym__literalStringMultiline; sym_identifier; sym_kDefault; sym_kNodefault; sym_kDispId;
   sym_kGeneric; sym_kSpecialize; sym_kOperator; sym_kPublic; sym_kStatic; sym_kVirtual;
   sym_kAbstract; sym_kDynamic; sym_kOverride; sym_kOverload; sym_kReintroduce; sym_kStdcall;
   sym_kCdecl; sym_kCppdecl; sym_kPascal; sym_kRegister; sym_kMwpascal; sym_kMessage;
   sym_kDeprecated; sym_kExperimental; sym_kPlatform; sym_kUnimplemented; sym_kCvar; sym_kExport;
   sym_kFar; sym_kNear; sym_kSafecall; sym_kAssembler; sym_kNostackframe; sym_kInterrupt;
   sym_kNoreturn; sym_kIocheck; sym_kLocal; sym_kHardfloat; sym_kSoftfloat; sym_kMs_abi_default;
   sym_kMs_abi_cdecl; sym_kSaveregisters; sym_kSysv_abi_default; sym_kSysv_abi_cdecl;
   sym_kVectorcall; sym_kVarargs; sym_kWinapi; sym_kAlias; sym_kAsm; sym_kBegin; sym_kCase;
   sym_kClass; sym_kConst; sym_kConstructor; sym_kDestructor; sym_kExports; sym_kFor;
   sym_kFunction; sym_kGoto; sym_kIf; sym_kInherited; sym_kLabel; sym_kNil; sym_kNot;
   sym_kProcedure; sym_kProperty; sym_kRaise; sym_kRepeat; sym_kResourcestring; sym_kString;
   sym_kThreadvar; sym_kTry; sym_kType; sym_kUses; sym_kVar; sym_kWhile; sym_kWith]].

(** State 1330. *)
Definition ts_parse_table_1330 : parse_row :=
  [ACTIONS 10985 [anon_sym_SEMI; anon_sym_COMMA; anon_sym_LBRACK];
   ACTIONS 10987 [anon_sym_LPAREN]; ACTIONS 10985 [aux_sym__literalString_token1;
   anon_sym_POUND]; ACTIONS 10987 [aux_sym__literalInt_token1];
   ACTIONS 10985 [aux_sym__literalInt_token2; aux_sym__literalInt_token3];
   ACTIONS 10987 [aux_sym__literalFloat_token1]; ACTIONS 10985 [aux_sym_ppUsesBlock_token1;
   aux_sym_ppUsesBlock_token2; aux_sym_ppUsesBlock_token3]; ACTIONS 10987 [sym_kAdd; sym_kSub];
   ACTIONS 10985 [sym_kAt; sym_kTrue; sym_kFalse]; ACTIONS 3 [sym__space];
   ACTIONS 5 [sym_ppDirective]; ACTIONS 3 [sym_comment]; ACTIONS 10985 [sym_ppFragmentExpr;
   sym__literalStringMultiline; sym_identifier; sym_kDefault; sym_kNodefault; sym_kDispId;
   sym_kGeneric; sym_kSpecialize; sym_kOperator; sym_kPublic; sym_kStatic; sym_kVirtual;
   sym_kAbstract; sym_kDynamic; sym_kOverride; sym_kOverload; sym_kReintroduce; sym_kStdcall;
   sym_kCdecl; sym_kCppdecl; sym_kPascal; sym_kRegister; sym_kMwpascal; sym_kMessage;
   sym_kDeprecated; sym_kExperimental; sym_kPlatform; sym_kUnimplemented; sym_kCvar; sym_kExport;
   sym_kFar; sym_kNear; sym_kSafecall; sym_kAssembler; sym_kNostackframe; sym_kInterrupt;
   sym_kNoreturn; sym_kIocheck; sym_kLocal; sym_kHardfloat; sym_kSoftfloat; sym_kMs_abi_default;
   sym_kMs_abi_cdecl; sym_kSaveregisters; sym_kSysv_abi_default; sym_kSysv_abi_cdecl;
   sym_kVectorcall; sym_kVarargs; sym_kWinapi; sym_kAlias; sym_kAsm; sym_kBegin; sym_kCase;
   sym_kClass; sym_kConst; sym_kConstructor; sym_kDestructor; sym_kExports; sym_kFor;
   sym_kFunction; sym_kGoto; sym_kIf; sym_kInherited; sym_kLabel; sym_kNil; sym_kNot;
   sym_kProcedure; sym_kProperty; sym_kRaise; sym_kRepeat; sym_kResourcestring; sym_kString;
   sym_kThreadvar; sym_kTry; sym_kType; sym_kUses; sym_kVar; sym_kWhile; sym_kWith]].

(** State 1331. *)
Definition ts_parse_table_1331 : parse_row :=
  [ACTIONS 10989 [anon_sym_SEMI; anon_sym_COMMA; anon_sym_LBRACK];
   ACTIONS 10991 [anon_sym_LPAREN]; ACTIONS 10989 [aux_sym__literalString_token1;
   anon_sym_POUND]; ACTIONS 10991 [aux_sym__literalInt_token1];
   ACTIONS 10989 [aux_sym__literalInt_token2; aux_sym__literalInt_token3];
   ACTIONS 10991 [aux_sym__literalFloat_token1]; ACTIONS 10989 [aux_sym_ppUsesBlock_token1;
   aux_sym_ppUsesBlock_token2; aux_sym_ppUsesBlock_token3]; ACTIONS 10991 [sym_kAdd; sym_kSub];
   ACTIONS 10989 [sym_kAt; sym_kTrue; sym_kFalse]; ACTIONS 3 [sym__space];
   ACTIONS 5 [sym_ppDirective]; ACTIONS 3 [sym_comment]; ACTIONS 10989 [sym_ppFragmentExpr;
   sym__literalStringMultiline; sym_identifier; sym_kDefault; sym_kNodefault; sym_kDispId;
   sym_kGeneric; sym_kSpecialize; sym_kOperator; sym_kPublic; sym_kStatic; sym_kVirtual;
   sym_kAbstract; sym_kDynamic; sym_kOverride; sym_kOverload; sym_kReintroduce; sym_kStdcall;
   sym_kCdecl; sym_kCppdecl; sym_kPascal; sym_kRegister; sym_kMwpascal; sym_kMessage;
   sym_kDeprecated; sym_kExperimental; sym_kPlatform; sym_kUnimplemented; sym_kCvar; sym_kExport;
   sym_kFar; sym_kNear; sym_kSafecall; sym_kAssembler; sym_kNostackframe; sym_kInterrupt;
   sym_kNoreturn; sym_kIocheck; sym_kLocal; sym_kHardfloat; sym_kSoftfloat; sym_kMs_abi_default;
   sym_kMs_abi_cdecl; sym_kSaveregisters; sym_kSysv_abi_default; sym_kSysv_abi_cdecl;
   sym_kVectorcall; sym_kVarargs; sym_kWinapi; sym_kAlias; sym_kAsm; sym_kBegin; sym_kCase;
   sym_kClass; sym_kConst; sym_kConstructor; sym_kDestructor; sym_kExports; sym_kFor;
   sym_kFunction; sym_kGoto; sym_kIf; sym_kInherited; sym_kLabel; sym_kNil; sym_kNot;
   sym_kProcedure; sym_kProperty; sym_kRaise; sym_kRepeat; sym_kResourcestring; sym_kString;
   sym_kThreadvar; sym_kTry; sym_kType; sym_kUses; sym_kVar; sym_kWhile; sym_kWith]].

(** State 1332. *)
Definition ts_parse_table_1332 : parse_row :=
  [ACTIONS 10810 [anon_sym_SEMI; anon_sym_COMMA; anon_sym_LBRACK];
   ACTIONS 10812 [anon_sym_LPAREN]; ACTIONS 10810 [aux_sym__literalString_token1;
   anon_sym_POUND]; ACTIONS 10812 [aux_sym__literalInt_token1];
   ACTIONS 10810 [aux_sym__literalInt_token2; aux_sym__literalInt_token3];
   ACTIONS 10812 [aux_sym__literalFloat_token1]; ACTIONS 10810 [aux_sym_ppUsesBlock_token1;
   aux_sym_ppUsesBlock_token2; aux_sym_ppUsesBlock_token3]; ACTIONS 10812 [sym_kAdd; sym_kSub];
   ACTIONS 10810 [sym_kAt; sym_kTrue; sym_kFalse]; ACTIONS 3 [sym__space];
   ACTIONS 5 [sym_ppDirective]; ACTIONS 3 [sym_comment]; ACTIONS 10810 [sym_ppFragmentExpr;
   sym__literalStringMultiline; sym_identifier; sym_kDefault; sym_kNodefault; sym_kDispId;
   sym_kGeneric; sym_kSpecialize; sym_kOperator; sym_kPublic; sym_kStatic; sym_kVirtual;
   sym_kAbstract; sym_kDynamic; sym_kOverride; sym_kOverload; sym_kReintroduce; sym_kStdcall;
   sym_kCdecl; sym_kCppdecl; sym_kPascal; sym_kRegister; sym_kMwpascal; sym_kMessage;
   sym_kDeprecated; sym_kExperimental; sym_kPlatform; sym_kUnimplemented; sym_kCvar; sym_kExport;
   sym_kFar; sym_kNear; sym_kSafecall; sym_kAssembler; sym_kNostackframe; sym_kInterrupt;
   sym_kNoreturn; sym_kIocheck; sym_kLocal; sym_kHardfloat; sym_kSoftfloat; sym_kMs_abi_default;
   sym_kMs_abi_cdecl; sym_kSaveregisters; sym_kSysv_abi_default; sym_kSysv_abi_cdecl;
   sym_kVectorcall; sym_kVarargs; sym_kWinapi; sym_kAlias; sym_kAsm; sym_kBegin; sym_kCase;
   sym_kClass; sym_kConst; sym_kConstructor; sym_kDestructor; sym_kExports; sym_kFor;
   sym_kFunction; sym_kGoto; sym_kIf; sym_kInherited; sym_kLabel; sym_kNil; sym_kNot;
   sym_kProcedure; sym_kProperty; sym_kRaise; sym_kRepeat; sym_kResourcestring; sym_kString;
   sym_kThreadvar; sym_kTry; sym_kType; sym_kUses; sym_kVar; sym_kWhile; sym_kWith]].

(** State 1333. *)
Definition ts_parse_table_1333 : parse_row :=
  [ACTIONS 10792 [anon_sym_SEMI; anon_sym_COMMA; anon_sym_LBRACK];
   ACTIONS 10794 [anon_sym_LPAREN]; ACTIONS 10792 [aux_sym__literalString_token1;
   anon_sym_POUND]; ACTIONS 10794 [aux_sym__literalInt_token1];
   ACTIONS 10792 [aux_sym__literalInt_token2; aux_sym__literalInt_token3];
   ACTIONS 10794 [aux_sym__literalFloat_token1]; ACTIONS 10792 [aux_sym_ppUsesBlock_token1;
   aux_sym_ppUsesBlock_token2; aux_sym_ppUsesBlock_token3]; ACTIONS 10794 [sym_kAdd; sym_kSub];
   ACTIONS 10792 [sym_kAt; sym_kTrue; sym_kFalse]; ACTIONS 3 [sym__space];
   ACTIONS 5 [sym_ppDirective]; ACTIONS 3 [sym_comment]; ACTIONS 10792 [sym_ppFragmentExpr;
   sym__literalStringMultiline; sym_identifier; sym_kDefault; sym_kNodefault; sym_kDispId;
   sym_kGeneric; sym_kSpecialize; sym_kOperator; sym_kPublic; sym_kStatic; sym_kVirtual;
   sym_kAbstract; sym_kDynamic; sym_kOverride; sym_kOverload; sym_kReintroduce; sym_kStdcall;
   sym_kCdecl; sym_kCppdecl; sym_kPascal; sym_kRegister; sym_kMwpascal; sym_kMessage;
   sym_kDeprecated; sym_kExperimental; sym_kPlatform; sym_kUnimplemented; sym_kCvar; sym_kExport;
   sym_kFar; sym_kNear; sym_kSafecall; sym_kAssembler; sym_kNostackframe; sym_kInterrupt;
   sym_kNoreturn; sym_kIocheck; sym_kLocal; sym_kHardfloat; sym_kSoftfloat; sym_kMs_abi_default;
   sym_kMs_abi_cdecl; sym_kSaveregisters; sym_kSysv_abi_default; sym_kSysv_abi_cdecl;
   sym_kVectorcall; sym_kVarargs; sym_kWinapi; sym_kAlias; sym_kAsm; sym_kBegin; sym_kCase;
   sym_kClass; sym_kConst; sym_kConstructor; sym_kDestructor; sym_kExports; sym_kFor;
   sym_kFunction; sym_kGoto; sym_kIf; sym_kInherited; sym_kLabel; sym_kNil; sym_kNot;
   sym_kProcedure; sym_kProperty; sym_kRaise; sym_kRepeat; sym_kResourcestring; sym_kString;
   sym_kThreadvar; sym_kTry; sym_kType; sym_kUses; sym_kVar; sym_kWhile; sym_kWith]].

(** State 1334. *)
Definition ts_parse_table_1334 : parse_row :=
  [ACTIONS 10784 [anon_sym_SEMI; anon_sym_COMMA; anon_sym_LBRACK];
   ACTIONS 10786 [anon_sym_LPAREN]; ACTIONS 10784 [aux_sym__literalString_token1;
   anon_sym_POUND]; ACTIONS 10786 [aux_sym__literalInt_token1];
   ACTIONS 10784 [aux_sym__literalInt_token2; aux_sym__literalInt_token3];
   ACTIONS 10786 [aux_sym__literalFloat_token1]; ACTIONS 10784 [aux_sym_ppUsesBlock_token1;
   aux_sym_ppUsesBlock_token2; aux_sym_ppUsesBlock_token3]; ACTIONS 10786 [sym_kAdd; sym_kSub];
   ACTIONS 10784 [sym_kAt; sym_kTrue; sym_kFalse]; ACTIONS 3 [sym__space];
   ACTIONS 5 [sym_ppDirective]; ACTIONS 3 [sym_comment]; ACTIONS 10784 [sym_ppFragmentExpr;
   sym__literalStringMultiline; sym_identifier; sym_kDefault; sym_kNodefault; sym_kDispId;
   sym_kGeneric; sym_kSpecialize; sym_kOperator; sym_kPublic; sym_kStatic; sym_kVirtual;
   sym_kAbstract; sym_kDynamic; sym_kOverride; sym_kOverload; sym_kReintroduce; sym_kStdcall;
   sym_kCdecl; sym_kCppdecl; sym_kPascal; sym_kRegister; sym_kMwpascal; sym_kMessage;
   sym_kDeprecated; sym_kExperimental; sym_kPlatform; sym_kUnimplemented; sym_kCvar; sym_kExport;
   sym_kFar; sym_kNear; sym_kSafecall; sym_kAssembler; sym_kNostackframe; sym_kInterrupt;
   sym_kNoreturn; sym_kIocheck; sym_kLocal; sym_kHardfloat; sym_kSoftfloat; sym_kMs_abi_default;
   sym_kMs_abi_cdecl; sym_kSaveregisters; sym_kSysv_abi_default; sym_kSysv_abi_cdecl;
   sym_kVectorcall; sym_kVarargs; sym_kWinapi; sym_kAlias; sym_kAsm; sym_kBegin; sym_kCase;
   sym_kClass; sym_kConst; sym_kConstructor; sym_kDestructor; sym_kExports; sym_kFor;
   sym_kFunction; sym_kGoto; sym_kIf; sym_kInherited; sym_kLabel; sym_kNil; sym_kNot;
   sym_kProcedure; sym_kProperty; sym_kRaise; sym_kRepeat; sym_kResourcestring; sym_kString;
   sym_kThreadvar; sym_kTry; sym_kType; sym_kUses; sym_kVar; sym_kWhile; sym_kWith]].

(** State 1335. *)
Definition ts_parse_table_1335 : parse_row :=
  [ACTIONS 10993 [anon_sym_SEMI; anon_sym_COMMA; anon_sym_LBRACK];
   ACTIONS 10995 [anon_sym_LPAREN]; ACTIONS 10993 [aux_sym__literalString_token1;
   anon_sym_POUND]; ACTIONS 10995 [aux_sym__literalInt_token1];
   ACTIONS 10993 [aux_sym__literalInt_token2; aux_sym__literalInt_token3];
   ACTIONS 10995 [aux_sym__literalFloat_token1]; ACTIONS 10993 [aux_sym_ppUsesBlock_token1;
   aux_sym_ppUsesBlock_token2; aux_sym_ppUsesBlock_token3]; ACTIONS 10995 [sym_kAdd; sym_kSub];
   ACTIONS 10993 [sym_kAt; sym_kTrue; sym_kFalse]; ACTIONS 3 [sym__space];
   ACTIONS 5 [sym_ppDirective]; ACTIONS 3 [sym_comment]; ACTIONS 10993 [sym_ppFragmentExpr;
   sym__literalStringMultiline; sym_identifier; sym_kDefault; sym_kNodefault; sym_kDispId;
   sym_kGeneric; sym_kSpecialize; sym_kOperator; sym_kPublic; sym_kStatic; sym_kVirtual;
   sym_kAbstract; sym_kDynamic; sym_kOverride; sym_kOverload; sym_kReintroduce; sym_kStdcall;
   sym_kCdecl; sym_kCppdecl; sym_kPascal; sym_kRegister; sym_kMwpascal; sym_kMessage;
   sym_kDeprecated; sym_kExperimental; sym_kPlatform; sym_kUnimplemented; sym_kCvar; sym_kExport;
   sym_kFar; sym_kNear; sym_kSafecall; sym_kAssembler; sym_kNostackframe; sym_kInterrupt;
   sym_kNoreturn; sym_kIocheck; sym_kLocal; sym_kHardfloat; sym_kSoftfloat; sym_kMs_abi_default;
   sym_kMs_abi_cdecl; sym_kSaveregisters; sym_kSysv_abi_default; sym_kSysv_abi_cdecl;
   sym_kVectorcall; sym_kVarargs; sym_kWinapi; sym_kAlias; sym_kAsm; sym_kBegin; sym_kCase;
   sym_kClass; sym_kConst; sym_kConstructor; sym_kDestructor; sym_kExports; sym_kFor;
   sym_kFunction; sym_kGoto; sym_kIf; sym_kInherited; sym_kLabel; sym_kNil; sym_kNot;
   sym_kProcedure; sym_kProperty; sym_kRaise; sym_kRepeat; sym_kResourcestring; sym_kString;
   sym_kThreadvar; sym_kTry; sym_kType; sym_kUses; sym_kVar; sym_kWhile; sym_kWith]].

(** State 1336. *)
Definition ts_parse_table_1336 : parse_row :=
  [ACTIONS 10886 [anon_sym_SEMI; anon_sym_COMMA; anon_sym_LBRACK];
   ACTIONS 10888 [anon_sym_LPAREN]; ACTIONS 10886 [aux_sym__literalString_token1;
   anon_sym_POUND]; ACTIONS 10888 [aux_sym__literalInt_token1];
   ACTIONS 10886 [aux_sym__literalInt_token2; aux_sym__literalInt_token3];
   ACTIONS 10888 [aux_sym__literalFloat_token1]; ACTIONS 10886 [aux_sym_ppUsesBlock_token1;
   aux_sym_ppUsesBlock_token2; aux_sym_ppUsesBlock_token3]; ACTIONS 10888 [sym_kAdd; sym_kSub];
   ACTIONS 10886 [sym_kAt; sym_kTrue; sym_kFalse]; ACTIONS 3 [sym__space];
   ACTIONS 5 [sym_ppDirective]; ACTIONS 3 [sym_comment]; ACTIONS 10886 [sym_ppFragmentExpr;
   sym__literalStringMultiline; sym_identifier; sym_kDefault; sym_kNodefault; sym_kDispId;
   sym_kGeneric; sym_kSpecialize; sym_kOperator; sym_kPublic; sym_kStatic; sym_kVirtual;
   sym_kAbstract; sym_kDynamic; sym_kOverride; sym_kOverload; sym_kReintroduce; sym_kStdcall;
   sym_kCdecl; sym_kCppdecl; sym_kPascal; sym_kRegister; sym_kMwpascal; sym_kMessage;
   sym_kDeprecated; sym_kExperimental; sym_kPlatform; sym_kUnimplemented; sym_kCvar; sym_kExport;
   sym_kFar; sym_kNear; sym_kSafecall; sym_kAssembler; sym_kNostackframe; sym_kInterrupt;
   sym_kNoreturn; sym_kIocheck; sym_kLocal; sym_kHardfloat; sym_kSoftfloat; sym_kMs_abi_default;
   sym_kMs_abi_cdecl; sym_kSaveregisters; sym_kSysv_abi_default; sym_kSysv_abi_cdecl;
   sym_kVectorcall; sym_kVarargs; sym_kWinapi; sym_kAlias; sym_kAsm; sym_kBegin; sym_kCase;
   sym_kClass; sym_kConst; sym_kConstructor; sym_kDestructor; sym_kExports; sym_kFor;
   sym_kFunction; sym_kGoto; sym_kIf; sym_kInherited; sym_kLabel; sym_kNil; sym_kNot;
   sym_kProcedure; sym_kProperty; sym_kRaise; sym_kRepeat; sym_kResourcestring; sym_kString;
   sym_kThreadvar; sym_kTry; sym_kType; sym_kUses; sym_kVar; sym_kWhile; sym_kWith]].

(** State 1337. *)
Definition ts_parse_table_1337 : parse_row :=
  [ACTIONS 10760 [anon_sym_SEMI; anon_sym_COMMA; anon_sym_LBRACK];
   ACTIONS 10762 [anon_sym_LPAREN]; ACTIONS 10760 [aux_sym__literalString_token1;
   anon_sym_POUND]; ACTIONS 10762 [aux_sym__literalInt_token1];
   ACTIONS 10760 [aux_sym__literalInt_token2; aux_sym__literalInt_token3];
   ACTIONS 10762 [aux_sym__literalFloat_token1]; ACTIONS 10760 [aux_sym_ppUsesBlock_token1;
   aux_sym_ppUsesBlock_token2; aux_sym_ppUsesBlock_token3]; ACTIONS 10762 [sym_kAdd; sym_kSub];
   ACTIONS 10760 [sym_kAt; sym_kTrue; sym_kFalse]; ACTIONS 3 [sym__space];
   ACTIONS 5 [sym_ppDirective]; ACTIONS 3 [sym_comment]; ACTIONS 10760 [sym_ppFragmentExpr;
   sym__literalStringMultiline; sym_identifier; sym_kDefault; sym_kNodefault; sym_kDispId;
   sym_kGeneric; sym_kSpecialize; sym_kOperator; sym_kPublic; sym_kStatic; sym_kVirtual;
   sym_kAbstract; sym_kDynamic; sym_kOverride; sym_kOverload; sym_kReintroduce; sym_kStdcall;
   sym_kCdecl; sym_kCppdecl; sym_kPascal; sym_kRegister; sym_kMwpascal; sym_kMessage;
   sym_kDeprecated; sym_kExperimental; sym_kPlatform; sym_kUnimplemented; sym_kCvar; sym_kExport;
   sym_kFar; sym_kNear; sym_kSafecall; sym_kAssembler; sym_kNostackframe; sym_kInterrupt;
   sym_kNoreturn; sym_kIocheck; sym_kLocal; sym_kHardfloat; sym_kSoftfloat; sym_kMs_abi_default;
   sym_kMs_abi_cdecl; sym_kSaveregisters; sym_kSysv_abi_default; sym_kSysv_abi_cdecl;
   sym_kVectorcall; sym_kVarargs; sym_kWinapi; sym_kAlias; sym_kAsm; sym_kBegin; sym_kCase;
   sym_kClass; sym_kConst; sym_kConstructor; sym_kDestructor; sym_kExports; sym_kFor;
   sym_kFunction; sym_kGoto; sym_kIf; sym_kInherited; sym_kLabel; sym_kNil; sym_kNot;
   sym_kProcedure; sym_kProperty; sym_kRaise; sym_kRepeat; sym_kResourcestring; sym_kString;
   sym_kThreadvar; sym_kTry; sym_kType; sym_kUses; sym_kVar; sym_kWhile; sym_kWith]].

(** State 1338. *)
Definition ts_parse_table_1338 : parse_row :=
  [ACTIONS 10862 [anon_sym_SEMI; anon_sym_COMMA; anon_sym_LBRACK];
   ACTIONS 10864 [anon_sym_LPAREN]; ACTIONS 10862 [aux_sym__literalString_token1;
   anon_sym_POUND]; ACTIONS 10864 [aux_sym__literalInt_token1];
   ACTIONS 10862 [aux_sym__literalInt_token2; aux_sym__literalInt_token3];
   ACTIONS 10864 [aux_sym__literalFloat_token1]; ACTIONS 10862 [aux_sym_ppUsesBlock_token1;
   aux_sym_ppUsesBlock_token2; aux_sym_ppUsesBlock_token3]; ACTIONS 10864 [sym_kAdd; sym_kSub];
   ACTIONS 10862 [sym_kAt; sym_kTrue; sym_kFalse]; ACTIONS 3 [sym__space];
   ACTIONS 5 [sym_ppDirective]; ACTIONS 3 [sym_comment]; ACTIONS 10862 [sym_ppFragmentExpr;
   sym__literalStringMultiline; sym_identifier; sym_kDefault; sym_kNodefault; sym_kDispId;
   sym_kGeneric; sym_kSpecialize; sym_kOperator; sym_kPublic; sym_kStatic; sym_kVirtual;
   sym_kAbstract; sym_kDynamic; sym_kOverride; sym_kOverload; sym_kReintroduce; sym_kStdcall;
   sym_kCdecl; sym_kCppdecl; sym_kPascal; sym_kRegister; sym_kMwpascal; sym_kMessage;
   sym_kDeprecated; sym_kExperimental; sym_kPlatform; sym_kUnimplemented; sym_kCvar; sym_kExport;
   sym_kFar; sym_kNear; sym_kSafecall; sym_kAssembler; sym_kNostackframe; sym_kInterrupt;
   sym_kNoreturn; sym_kIocheck; sym_kLocal; sym_kHardfloat; sym_kSoftfloat; sym_kMs_abi_default;
   sym_kMs_abi_cdecl; sym_kSaveregisters; sym_kSysv_abi_default; sym_kSysv_abi_cdecl;
   sym_kVectorcall; sym_kVarargs; sym_kWinapi; sym_kAlias; sym_kAsm; sym_kBegin; sym_kCase;
   sym_kClass; sym_kConst; sym_kConstructor; sym_kDestructor; sym_kExports; sym_kFor;
   sym_kFunction; sym_kGoto; sym_kIf; sym_kInherited; sym_kLabel; sym_kNil; sym_kNot;
   sym_kProcedure; sym_kProperty; sym_kRaise; sym_kRepeat; sym_kResourcestring; sym_kString;
   sym_kThreadvar; sym_kTry; sym_kType; sym_kUses; sym_kVar; sym_kWhile; sym_kWith]].

(** State 1339. *)
Definition ts_parse_table_1339 : parse_row :=
  [ACTIONS 10740 [anon_sym_SEMI; anon_sym_COMMA; anon_sym_LBRACK];
   ACTIONS 10742 [anon_sym_LPAREN]; ACTIONS 10740 [aux_sym__literalString_token1;
   anon_sym_POUND]; ACTIONS 10742 [aux_sym__literalInt_token1];
   ACTIONS 10740 [aux_sym__literalInt_token2; aux_sym__literalInt_token3];
   ACTIONS 10742 [aux_sym__literalFloat_token1]; ACTIONS 10740 [aux_sym_ppUsesBlock_token1;
   aux_sym_ppUsesBlock_token2; aux_sym_ppUsesBlock_token3]; ACTIONS 10742 [sym_kAdd; sym_kSub];
   ACTIONS 10740 [sym_kAt; sym_kTrue; sym_kFalse]; ACTIONS 3 [sym__space];
   ACTIONS 5 [sym_ppDirective]; ACTIONS 3 [sym_comment]; ACTIONS 10740 [sym_ppFragmentExpr;
   sym__literalStringMultiline; sym_identifier; sym_kDefault; sym_kNodefault; sym_kDispId;
   sym_kGeneric; sym_kSpecialize; sym_kOperator; sym_kPublic; sym_kStatic; sym_kVirtual;
   sym_kAbstract; sym_kDynamic; sym_kOverride; sym_kOverload; sym_kReintroduce; sym_kStdcall;
   sym_kCdecl; sym_kCppdecl; sym_kPascal; sym_kRegister; sym_kMwpascal; sym_kMessage;
   sym_kDeprecated; sym_kExperimental; sym_kPlatform; sym_kUnimplemented; sym_kCvar; sym_kExport;
   sym_kFar; sym_kNear; sym_kSafecall; sym_kAssembler; sym_kNostackframe; sym_kInterrupt;
   sym_kNoreturn; sym_kIocheck; sym_kLocal; sym_kHardfloat; sym_kSoftfloat; sym_kMs_abi_default;
   sym_kMs_abi_cdecl; sym_kSaveregisters; sym_kSysv_abi_default; sym_kSysv_abi_cdecl;
   sym_kVectorcall; sym_kVarargs; sym_kWinapi; sym_kAlias; sym_kAsm; sym_kBegin; sym_kCase;
   sym_kClass; sym_kConst; sym_kConstructor; sym_kDestructor; sym_kExports; sym_kFor;
   sym_kFunction; sym_kGoto; sym_kIf; sym_kInherited; sym_kLabel; sym_kNil; sym_kNot;
   sym_kProcedure; sym_kProperty; sym_kRaise; sym_kRepeat; sym_kResourcestring; sym_kString;
   sym_kThreadvar; sym_kTry; sym_kType; sym_kUses; sym_kVar; sym_kWhile; sym_kWith]].

(** State 1340. *)
Definition ts_parse_table_1340 : parse_row :=
  [ACTIONS 10732 [anon_sym_SEMI; anon_sym_COMMA; anon_sym_LBRACK];
   ACTIONS 10734 [anon_sym_LPAREN]; ACTIONS 10732 [aux_sym__literalString_token1;
   anon_sym_POUND]; ACTIONS 10734 [aux_sym__literalInt_token1];
   ACTIONS 10732 [aux_sym__literalInt_token2; aux_sym__literalInt_token3];
   ACTIONS 10734 [aux_sym__literalFloat_token1]; ACTIONS 10732 [aux_sym_ppUsesBlock_token1;
   aux_sym_ppUsesBlock_token2; aux_sym_ppUsesBlock_token3]; ACTIONS 10734 [sym_kAdd; sym_kSub];
   ACTIONS 10732 [sym_kAt; sym_kTrue; sym_kFalse]; ACTIONS 3 [sym__space];
   ACTIONS 5 [sym_ppDirective]; ACTIONS 3 [sym_comment]; ACTIONS 10732 [sym_ppFragmentExpr;
   sym__literalStringMultiline; sym_identifier; sym_kDefault; sym_kNodefault; sym_kDispId;
   sym_kGeneric; sym_kSpecialize; sym_kOperator; sym_kPublic; sym_kStatic; sym_kVirtual;
   sym_kAbstract; sym_kDynamic; sym_kOverride; sym_kOverload; sym_kReintroduce; sym_kStdcall;
   sym_kCdecl; sym_kCppdecl; sym_kPascal; sym_kRegister; sym_kMwpascal; sym_kMessage;
   sym_kDeprecated; sym_kExperimental; sym_kPlatform; sym_kUnimplemented; sym_kCvar; sym_kExport;
   sym_kFar; sym_kNear; sym_kSafecall; sym_kAssembler; sym_kNostackframe; sym_kInterrupt;
   sym_kNoreturn; sym_kIocheck; sym_kLocal; sym_kHardfloat; sym_kSoftfloat; sym_kMs_abi_default;
   sym_kMs_abi_cdecl; sym_kSaveregisters; sym_kSysv_abi_default; sym_kSysv_abi_cdecl;
   sym_kVectorcall; sym_kVarargs; sym_kWinapi; sym_kAlias; sym_kAsm; sym_kBegin; sym_kCase;
   sym_kClass; sym_kConst; sym_kConstructor; sym_kDestructor; sym_kExports; sym_kFor;
   sym_kFunction; sym_kGoto; sym_kIf; sym_kInherited; sym_kLabel; sym_kNil; sym_kNot;
   sym_kProcedure; sym_kProperty; sym_kRaise; sym_kRepeat; sym_kResourcestring; sym_kString;
   sym_kThreadvar; sym_kTry; sym_kType; sym_kUses; sym_kVar; sym_kWhile; sym_kWith]].

(** State 1341. *)
Definition ts_parse_table_1341 : parse_row :=
  [ACTIONS 10997 [anon_sym_SEMI; anon_sym_COMMA; anon_sym_LBRACK];
   ACTIONS 10999 [anon_sym_LPAREN]; ACTIONS 10997 [aux_sym__literalString_token1;
   anon_sym_POUND]; ACTIONS 10999 [aux_sym__literalInt_token1];
   ACTIONS 10997 [aux_sym__literalInt_token2; aux_sym__literalInt_token3];
   ACTIONS 10999 [aux_sym__literalFloat_token1]; ACTIONS 10997 [aux_sym_ppUsesBlock_token1;
   aux_sym_ppUsesBlock_token2; aux_sym_ppUsesBlock_token3]; ACTIONS 10999 [sym_kAdd; sym_kSub];
   ACTIONS 10997 [sym_kAt; sym_kTrue; sym_kFalse]; ACTIONS 3 [sym__space];
   ACTIONS 5 [sym_ppDirective]; ACTIONS 3 [sym_comment]; ACTIONS 10997 [sym_ppFragmentExpr;
   sym__literalStringMultiline; sym_identifier; sym_kDefault; sym_kNodefault; sym_kDispId;
   sym_kGeneric; sym_kSpecialize; sym_kOperator; sym_kPublic; sym_kStatic; sym_kVirtual;
   sym_kAbstract; sym_kDynamic; sym_kOverride; sym_kOverload; sym_kReintroduce; sym_kStdcall;
   sym_kCdecl; sym_kCppdecl; sym_kPascal; sym_kRegister; sym_kMwpascal; sym_kMessage;
   sym_kDeprecated; sym_kExperimental; sym_kPlatform; sym_kUnimplemented; sym_kCvar; sym_kExport;
   sym_kFar; sym_kNear; sym_kSafecall; sym_kAssembler; sym_kNostackframe; sym_kInterrupt;
   sym_kNoreturn; sym_kIocheck; sym_kLocal; sym_kHardfloat; sym_kSoftfloat; sym_kMs_abi_default;
   sym_kMs_abi_cdecl; sym_kSaveregisters; sym_kSysv_abi_default; sym_kSysv_abi_cdecl;
   sym_kVectorcall; sym_kVarargs; sym_kWinapi; sym_kAlias; sym_kAsm; sym_kBegin; sym_kCase;
   sym_kClass; sym_kConst; sym_kConstructor; sym_kDestructor; sym_kExports; sym_kFor;
   sym_kFunction; sym_kGoto; sym_kIf; sym_kInherited; sym_kLabel; sym_kNil; sym_kNot;
   sym_kProcedure; sym_kProperty; sym_kRaise; sym_kRepeat; sym_kResourcestring; sym_kString;
   sym_kThreadvar; sym_kTry; sym_kType; sym_kUses; sym_kVar; sym_kWhile; sym_kWith]].

(** State 1342. *)
Definition ts_parse_table_1342 : parse_row :=
  [ACTIONS 10774 [anon_sym_SEMI; anon_sym_COMMA; anon_sym_LBRACK];
   ACTIONS 10776 [anon_sym_LPAREN]; ACTIONS 10774 [aux_sym__literalString_token1;
   anon_sym_POUND]; ACTIONS 10776 [aux_sym__literalInt_token1];
   ACTIONS 10774 [aux_sym__literalInt_token2; aux_sym__literalInt_token3];
   ACTIONS 10776 [aux_sym__literalFloat_token1]; ACTIONS 10774 [aux_sym_ppUsesBlock_token1;
   aux_sym_ppUsesBlock_token2; aux_sym_ppUsesBlock_token3]; ACTIONS 10776 [sym_kAdd; sym_kSub];
   ACTIONS 10774 [sym_kAt; sym_kTrue; sym_kFalse]; ACTIONS 3 [sym__space];
   ACTIONS 5 [sym_ppDirective]; ACTIONS 3 [sym_comment]; ACTIONS 10774 [sym_ppFragmentExpr;
   sym__literalStringMultiline; sym_identifier; sym_kDefault; sym_kNodefault; sym_kDispId;
   sym_kGeneric; sym_kSpecialize; sym_kOperator; sym_kPublic; sym_kStatic; sym_kVirtual;
   sym_kAbstract; sym_kDynamic; sym_kOverride; sym_kOverload; sym_kReintroduce; sym_kStdcall;
   sym_kCdecl; sym_kCppdecl; sym_kPascal; sym_kRegister; sym_kMwpascal; sym_kMessage;
   sym_kDeprecated; sym_kExperimental; sym_kPlatform; sym_kUnimplemented; sym_kCvar; sym_kExport;
   sym_kFar; sym_kNear; sym_kSafecall; sym_kAssembler; sym_kNostackframe; sym_kInterrupt;
   sym_kNoreturn; sym_kIocheck; sym_kLocal; sym_kHardfloat; sym_kSoftfloat; sym_kMs_abi_default;
   sym_kMs_abi_cdecl; sym_kSaveregisters; sym_kSysv_abi_default; sym_kSysv_abi_cdecl;
   sym_kVectorcall; sym_kVarargs; sym_kWinapi; sym_kAlias; sym_kAsm; sym_kBegin; sym_kCase;
   sym_kClass; sym_kConst; sym_kConstructor; sym_kDestructor; sym_kExports; sym_kFor;
   sym_kFunction; sym_kGoto; sym_kIf; sym_kInherited; sym_kLabel; sym_kNil; sym_kNot;
   sym_kProcedure; sym_kProperty; sym_kRaise; sym_kRepeat; sym_kResourcestring; sym_kString;
   sym_kThreadvar; sym_kTry; sym_kType; sym_kUses; sym_kVar; sym_kWhile; sym_kWith]].

(** State 1343. *)
Definition ts_parse_table_1343 : parse_row :=
  [ACTIONS 10870 [anon_sym_SEMI; anon_sym_COMMA; anon_sym_LBRACK];
   ACTIONS 10872 [anon_sym_LPAREN]; ACTIONS 10870 [aux_sym__literalString_token1;
   anon_sym_POUND]; ACTIONS 10872 [aux_sym__literalInt_token1];
   ACTIONS 10870 [aux_sym__literalInt_token2; aux_sym__literalInt_token3];
   ACTIONS 10872 [aux_sym__literalFloat_token1]; ACTIONS 10870 [aux_sym_ppUsesBlock_token1;
   aux_sym_ppUsesBlock_token2; aux_sym_ppUsesBlock_token3]; ACTIONS 10872 [sym_kAdd; sym_kSub];
   ACTIONS 10870 [sym_kAt; sym_kTrue; sym_kFalse]; ACTIONS 3 [sym__space];
   ACTIONS 5 [sym_ppDirective]; ACTIONS 3 [sym_comment]; ACTIONS 10870 [sym_ppFragmentExpr;
   sym__literalStringMultiline; sym_identifier; sym_kDefault; sym_kNodefault; sym_kDispId;
   sym_kGeneric; sym_kSpecialize; sym_kOperator; sym_kPublic; sym_kStatic; sym_kVirtual;
   sym_kAbstract; sym_kDynamic; sym_kOverride; sym_kOverload; sym_kReintroduce; sym_kStdcall;
   sym_kCdecl; sym_kCppdecl; sym_kPascal; sym_kRegister; sym_kMwpascal; sym_kMessage;
   sym_kDeprecated; sym_kExperimental; sym_kPlatform; sym_kUnimplemented; sym_kCvar; sym_kExport;
   sym_kFar; sym_kNear; sym_kSafecall; sym_kAssembler; sym_kNostackframe; sym_kInterrupt;
   sym_kNoreturn; sym_kIocheck; sym_kLocal; sym_kHardfloat; sym_kSoftfloat; sym_kMs_abi_default;
   sym_kMs_abi_cdecl; sym_kSaveregisters; sym_kSysv_abi_default; sym_kSysv_abi_cdecl;
   sym_kVectorcall; sym_kVarargs; sym_kWinapi; sym_kAlias; sym_kAsm; sym_kBegin; sym_kCase;
   sym_kClass; sym_kConst; sym_kConstructor; sym_kDestructor; sym_kExports; sym_kFor;
   sym_kFunction; sym_kGoto; sym_kIf; sym_kInherited; sym_kLabel; sym_kNil; sym_kNot;
   sym_kProcedure; sym_kProperty; sym_kRaise; sym_kRepeat; sym_kResourcestring; sym_kString;
   sym_kThreadvar; sym_kTry; sym_kType; sym_kUses; sym_kVar; sym_kWhile; sym_kWith]].

(** State 1344. *)
Definition ts_parse_table_1344 : parse_row :=
  [ACTIONS 10874 [anon_sym_SEMI; anon_sym_COMMA; anon_sym_LBRACK];
   ACTIONS 10876 [anon_sym_LPAREN]; ACTIONS 10874 [aux_sym__literalString_token1;
   anon_sym_POUND]; ACTIONS 10876 [aux_sym__literalInt_token1];
   ACTIONS 10874 [aux_sym__literalInt_token2; aux_sym__literalInt_token3];
   ACTIONS 10876 [aux_sym__literalFloat_token1]; ACTIONS 10874 [aux_sym_ppUsesBlock_token1;
   aux_sym_ppUsesBlock_token2; aux_sym_ppUsesBlock_token3]; ACTIONS 10876 [sym_kAdd; sym_kSub];
   ACTIONS 10874 [sym_kAt; sym_kTrue; sym_kFalse]; ACTIONS 3 [sym__space];
   ACTIONS 5 [sym_ppDirective]; ACTIONS 3 [sym_comment]; ACTIONS 10874 [sym_ppFragmentExpr;
   sym__literalStringMultiline; sym_identifier; sym_kDefault; sym_kNodefault; sym_kDispId;
   sym_kGeneric; sym_kSpecialize; sym_kOperator; sym_kPublic; sym_kStatic; sym_kVirtual;
   sym_kAbstract; sym_kDynamic; sym_kOverride; sym_kOverload; sym_kReintroduce; sym_kStdcall;
   sym_kCdecl; sym_kCppdecl; sym_kPascal; sym_kRegister; sym_kMwpascal; sym_kMessage;
   sym_kDeprecated; sym_kExperimental; sym_kPlatform; sym_kUnimplemented; sym_kCvar; sym_kExport;
   sym_kFar; sym_kNear; sym_kSafecall; sym_kAssembler; sym_kNostackframe; sym_kInterrupt;
   sym_kNoreturn; sym_kIocheck; sym_kLocal; sym_kHardfloat; sym_kSoftfloat; sym_kMs_abi_default;
   sym_kMs_abi_cdecl; sym_kSaveregisters; sym_kSysv_abi_default; sym_kSysv_abi_cdecl;
   sym_kVectorcall; sym_kVarargs; sym_kWinapi; sym_kAlias; sym_kAsm; sym_kBegin; sym_kCase;
   sym_kClass; sym_kConst; sym_kConstructor; sym_kDestructor; sym_kExports; sym_kFor;
   sym_kFunction; sym_kGoto; sym_kIf; sym_kInherited; sym_kLabel; sym_kNil; sym_kNot;
   sym_kProcedure; sym_kProperty; sym_kRaise; sym_kRepeat; sym_kResourcestring; sym_kString;
   sym_kThreadvar; sym_kTry; sym_kType; sym_kUses; sym_kVar; sym_kWhile; sym_kWith]].

(** State 1345. *)
Definition ts_parse_table_1345 : parse_row :=
  [ACTIONS 11001 [anon_sym_SEMI; anon_sym_COMMA; anon_sym_LBRACK];
   ACTIONS 11003 [anon_sym_LPAREN]; ACTIONS 11001 [aux_sym__literalString_token1;
   anon_sym_POUND]; ACTIONS 11003 [aux_sym__literalInt_token1];
   ACTIONS 11001 [aux_sym__literalInt_token2; aux_sym__literalInt_token3];
   ACTIONS 11003 [aux_sym__literalFloat_token1]; ACTIONS 11001 [aux_sym_ppUsesBlock_token1;
   aux_sym_ppUsesBlock_token2; aux_sym_ppUsesBlock_token3]; ACTIONS 11003 [sym_kAdd; sym_kSub];
   ACTIONS 11001 [sym_kAt; sym_kTrue; sym_kFalse]; ACTIONS 3 [sym__space];
   ACTIONS 5 [sym_ppDirective]; ACTIONS 3 [sym_comment]; ACTIONS 11001 [sym_ppFragmentExpr;
   sym__literalStringMultiline; sym_identifier; sym_kDefault; sym_kNodefault; sym_kDispId;
   sym_kGeneric; sym_kSpecialize; sym_kOperator; sym_kPublic; sym_kStatic; sym_kVirtual;
   sym_kAbstract; sym_kDynamic; sym_kOverride; sym_kOverload; sym_kReintroduce; sym_kStdcall;
   sym_kCdecl; sym_kCppdecl; sym_kPascal; sym_kRegister; sym_kMwpascal; sym_kMessage;
   sym_kDeprecated; sym_kExperimental; sym_kPlatform; sym_kUnimplemented; sym_kCvar; sym_kExport;
   sym_kFar; sym_kNear; sym_kSafecall; sym_kAssembler; sym_kNostackframe; sym_kInterrupt;
   sym_kNoreturn; sym_kIocheck; sym_kLocal; sym_kHardfloat; sym_kSoftfloat; sym_kMs_abi_default;
   sym_kMs_abi_cdecl; sym_kSaveregisters; sym_kSysv_abi_default; sym_kSysv_abi_cdecl;
   sym_kVectorcall; sym_kVarargs; sym_kWinapi; sym_kAlias; sym_kAsm; sym_kBegin; sym_kCase;
   sym_kClass; sym_kConst; sym_kConstructor; sym_kDestructor; sym_kExports; sym_kFor;
   sym_kFunction; sym_kGoto; sym_kIf; sym_kInherited; sym_kLabel; sym_kNil; sym_kNot;
   sym_kProcedure; sym_kProperty; sym_kRaise; sym_kRepeat; sym_kResourcestring; sym_kString;
   sym_kThreadvar; sym_kTry; sym_kType; sym_kUses; sym_kVar; sym_kWhile; sym_kWith]].

(** State 1346. *)
Definition ts_parse_table_1346 : parse_row :=
  [ACTIONS 10894 [anon_sym_SEMI; anon_sym_COMMA; anon_sym_LBRACK];
   ACTIONS 10896 [anon_sym_LPAREN]; ACTIONS 10894 [aux_sym__literalString_token1;
   anon_sym_POUND]; ACTIONS 10896 [aux_sym__literalInt_token1];
   ACTIONS 10894 [aux_sym__literalInt_token2; aux_sym__literalInt_token3];
   ACTIONS 10896 [aux_sym__literalFloat_token1]; ACTIONS 10894 [aux_sym_ppUsesBlock_token1;
   aux_sym_ppUsesBlock_token2; aux_sym_ppUsesBlock_token3]; ACTIONS 10896 [sym_kAdd; sym_kSub];
   ACTIONS 10894 [sym_kAt; sym_kTrue; sym_kFalse]; ACTIONS 3 [sym__space];
   ACTIONS 5 [sym_ppDirective]; ACTIONS 3 [sym_comment]; ACTIONS 10894 [sym_ppFragmentExpr;
   sym__literalStringMultiline; sym_identifier; sym_kDefault; sym_kNodefault; sym_kDispId;
   sym_kGeneric; sym_kSpecialize; sym_kOperator; sym_kPublic; sym_kStatic; sym_kVirtual;
   sym_kAbstract; sym_kDynamic; sym_kOverride; sym_kOverload; sym_kReintroduce; sym_kStdcall;
   sym_kCdecl; sym_kCppdecl; sym_kPascal; sym_kRegister; sym_kMwpascal; sym_kMessage;
   sym_kDeprecated; sym_kExperimental; sym_kPlatform; sym_kUnimplemented; sym_kCvar; sym_kExport;
   sym_kFar; sym_kNear; sym_kSafecall; sym_kAssembler; sym_kNostackframe; sym_kInterrupt;
   sym_kNoreturn; sym_kIocheck; sym_kLocal; sym_kHardfloat; sym_kSoftfloat; sym_kMs_abi_default;
   sym_kMs_abi_cdecl; sym_kSaveregisters; sym_kSysv_abi_default; sym_kSysv_abi_cdecl;
   sym_kVectorcall; sym_kVarargs; sym_kWinapi; sym_kAlias; sym_kAsm; sym_kBegin; sym_kCase;
   sym_kClass; sym_kConst; sym_kConstructor; sym_kDestructor; sym_kExports; sym_kFor;
   sym_kFunction; sym_kGoto; sym_kIf; sym_kInherited; sym_kLabel; sym_kNil; sym_kNot;
   sym_kProcedure; sym_kProperty; sym_kRaise; sym_kRepeat; sym_kResourcestring; sym_kString;
   sym_kThreadvar; sym_kTry; sym_kType; sym_kUses; sym_kVar; sym_kWhile; sym_kWith]].

(** State 1347. *)
Definition ts_parse_table_1347 : parse_row :=
  [ACTIONS 11005 [anon_sym_SEMI; anon_sym_COMMA; anon_sym_LBRACK];
   ACTIONS 11007 [anon_sym_LPAREN]; ACTIONS 11005 [aux_sym__literalString_token1;
   anon_sym_POUND]; ACTIONS 11007 [aux_sym__literalInt_token1];
   ACTIONS 11005 [aux_sym__literalInt_token2; aux_sym__literalInt_token3];
   ACTIONS 11007 [aux_sym__literalFloat_token1]; ACTIONS 11005 [aux_sym_ppUsesBlock_token1;
   aux_sym_ppUsesBlock_token2; aux_sym_ppUsesBlock_token3]; ACTIONS 11007 [sym_kAdd; sym_kSub];
   ACTIONS 11005 [sym_kAt; sym_kTrue; sym_kFalse]; ACTIONS 3 [sym__space];
   ACTIONS 5 [sym_ppDirective]; ACTIONS 3 [sym_comment]; ACTIONS 11005 [sym_ppFragmentExpr;
   sym__literalStringMultiline; sym_identifier; sym_kDefault; sym_kNodefault; sym_kDispId;
   sym_kGeneric; sym_kSpecialize; sym_kOperator; sym_kPublic; sym_kStatic; sym_kVirtual;
   sym_kAbstract; sym_kDynamic; sym_kOverride; sym_kOverload; sym_kReintroduce; sym_kStdcall;
   sym_kCdecl; sym_kCppdecl; sym_kPascal; sym_kRegister; sym_kMwpascal; sym_kMessage;
   sym_kDeprecated; sym_kExperimental; sym_kPlatform; sym_kUnimplemented; sym_kCvar; sym_kExport;
   sym_kFar; sym_kNear; sym_kSafecall; sym_kAssembler; sym_kNostackframe; sym_kInterrupt;
   sym_kNoreturn; sym_kIocheck; sym_kLocal; sym_kHardfloat; sym_kSoftfloat; sym_kMs_abi_default;
   sym_kMs_abi_cdecl; sym_kSaveregisters; sym_kSysv_abi_default; sym_kSysv_abi_cdecl;
   sym_kVectorcall; sym_kVarargs; sym_kWinapi; sym_kAlias; sym_kAsm; sym_kBegin; sym_kCase;
   sym_kClass; sym_kConst; sym_kConstructor; sym_kDestructor; sym_kExports; sym_kFor;
   sym_kFunction; sym_kGoto; sym_kIf; sym_kInherited; sym_kLabel; sym_kNil; sym_kNot;
   sym_kProcedure; sym_kProperty; sym_kRaise; sym_kRepeat; sym_kResourcestring; sym_kString;
   sym_kThreadvar; sym_kTry; sym_kType; sym_kUses; sym_kVar; sym_kWhile; sym_kWith]].

(** State 1348. *)
Definition ts_parse_table_1348 : parse_row :=
  [ACTIONS 11009 [anon_sym_SEMI; anon_sym_COMMA; anon_sym_LBRACK];
   ACTIONS 11011 [anon_sym_LPAREN]; ACTIONS 11009 [aux_sym__literalString_token1;
   anon_sym_POUND]; ACTIONS 11011 [aux_sym__literalInt_token1];
   ACTIONS 11009 [aux_sym__literalInt_token2; aux_sym__literalInt_token3];
   ACTIONS 11011 [aux_sym__literalFloat_token1]; ACTIONS 11009 [aux_sym_ppUsesBlock_token1;
   aux_sym_ppUsesBlock_token2; aux_sym_ppUsesBlock_token3]; ACTIONS 11011 [sym_kAdd; sym_kSub];
   ACTIONS 11009 [sym_kAt; sym_kTrue; sym_kFalse]; ACTIONS 3 [sym__space];
   ACTIONS 5 [sym_ppDirective]; ACTIONS 3 [sym_comment]; ACTIONS 11009 [sym_ppFragmentExpr;
   sym__literalStringMultiline; sym_identifier; sym_kDefault; sym_kNodefault; sym_kDispId;
   sym_kGeneric; sym_kSpecialize; sym_kOperator; sym_kPublic; sym_kStatic; sym_kVirtual;
   sym_kAbstract; sym_kDynamic; sym_kOverride; sym_kOverload; sym_kReintroduce; sym_kStdcall;
   sym_kCdecl; sym_kCppdecl; sym_kPascal; sym_kRegister; sym_kMwpascal; sym_kMessage;
   sym_kDeprecated; sym_kExperimental; sym_kPlatform; sym_kUnimplemented; sym_kCvar; sym_kExport;
   sym_kFar; sym_kNear; sym_kSafecall; sym_kAssembler; sym_kNostackframe; sym_kInterrupt;
   sym_kNoreturn; sym_kIocheck; sym_kLocal; sym_kHardfloat; sym_kSoftfloat; sym_kMs_abi_default;
   sym_kMs_abi_cdecl; sym_kSaveregisters; sym_kSysv_abi_default; sym_kSysv_abi_cdecl;
   sym_kVectorcall; sym_kVarargs; sym_kWinapi; sym_kAlias; sym_kAsm; sym_kBegin; sym_kCase;
   sym_kClass; sym_kConst; sym_kConstructor; sym_kDestructor; sym_kExports; sym_kFor;
   sym_kFunction; sym_kGoto; sym_kIf; sym_kInherited; sym_kLabel; sym_kNil; sym_kNot;
   sym_kProcedure; sym_kProperty; sym_kRaise; sym_kRepeat; sym_kResourcestring; sym_kString;
   sym_kThreadvar; sym_kTry; sym_kType; sym_kUses; sym_kVar; sym_kWhile; sym_kWith]].

(** State 1349. *)
Definition ts_parse_table_1349 : parse_row :=
  [ACTIONS 11013 [anon_sym_SEMI; anon_sym_COMMA; anon_sym_LBRACK];
   ACTIONS 11015 [anon_sym_LPAREN]; ACTIONS 11013 [aux_sym__literalString_token1;
   anon_sym_POUND]; ACTIONS 11015 [aux_sym__literalInt_token1];
   ACTIONS 11013 [aux_sym__literalInt_token2; aux_sym__literalInt_token3];
   ACTIONS 11015 [aux_sym__literalFloat_token1]; ACTIONS 11013 [aux_sym_ppUsesBlock_token1;
   aux_sym_ppUsesBlock_token2; aux_sym_ppUsesBlock_token3]; ACTIONS 11015 [sym_kAdd; sym_kSub];
   ACTIONS 11013 [sym_kAt; sym_kTrue; sym_kFalse]; ACTIONS 3 [sym__space];
   ACTIONS 5 [sym_ppDirective]; ACTIONS 3 [sym_comment]; ACTIONS 11013 [sym_ppFragmentExpr;
   sym__literalStringMultiline; sym_identifier; sym_kDefault; sym_kNodefault; sym_kDispId;
   sym_kGeneric; sym_kSpecialize; sym_kOperator; sym_kPublic; sym_kStatic; sym_kVirtual;
   sym_kAbstract; sym_kDynamic; sym_kOverride; sym_kOverload; sym_kReintroduce; sym_kStdcall;
   sym_kCdecl; sym_kCppdecl; sym_kPascal; sym_kRegister; sym_kMwpascal; sym_kMessage;
   sym_kDeprecated; sym_kExperimental; sym_kPlatform; sym_kUnimplemented; sym_kCvar; sym_kExport;
   sym_kFar; sym_kNear; sym_kSafecall; sym_kAssembler; sym_kNostackframe; sym_kInterrupt;
   sym_kNoreturn; sym_kIocheck; sym_kLocal; sym_kHardfloat; sym_kSoftfloat; sym_kMs_abi_default;
   sym_kMs_abi_cdecl; sym_kSaveregisters; sym_kSysv_abi_default; sym_kSysv_abi_cdecl;
   sym_kVectorcall; sym_kVarargs; sym_kWinapi; sym_kAlias; sym_kAsm; sym_kBegin; sym_kCase;
   sym_kClass; sym_kConst; sym_kConstructor; sym_kDestructor; sym_kExports; sym_kFor;
   sym_kFunction; sym_kGoto; sym_kIf; sym_kInherited; sym_kLabel; sym_kNil; sym_kNot;
   sym_kProcedure; sym_kProperty; sym_kRaise; sym_kRepeat; sym_kResourcestring; sym_kString;
   sym_kThreadvar; sym_kTry; sym_kType; sym_kUses; sym_kVar; sym_kWhile; sym_kWith]].

(** State 1350. *)
Definition ts_parse_table_1350 : parse_row :=
  [ACTIONS 11017 [anon_sym_SEMI; anon_sym_COMMA; anon_sym_LBRACK];
   ACTIONS 11019 [anon_sym_LPAREN]; ACTIONS 11017 [aux_sym__literalString_token1;
   anon_sym_POUND]; ACTIONS 11019 [aux_sym__literalInt_token1];
   ACTIONS 11017 [aux_sym__literalInt_token2; aux_sym__literalInt_token3];
   ACTIONS 11019 [aux_sym__literalFloat_token1]; ACTIONS 11017 [aux_sym_ppUsesBlock_token1;
   aux_sym_ppUsesBlock_token2; aux_sym_ppUsesBlock_token3]; ACTIONS 11019 [sym_kAdd; sym_kSub];
   ACTIONS 11017 [sym_kAt; sym_kTrue; sym_kFalse]; ACTIONS 3 [sym__space];
   ACTIONS 5 [sym_ppDirective]; ACTIONS 3 [sym_comment]; ACTIONS 11017 [sym_ppFragmentExpr;
   sym__literalStringMultiline; sym_identifier; sym_kDefault; sym_kNodefault; sym_kDispId;
   sym_kGeneric; sym_kSpecialize; sym_kOperator; sym_kPublic; sym_kStatic; sym_kVirtual;
   sym_kAbstract; sym_kDynamic; sym_kOverride; sym_kOverload; sym_kReintroduce; sym_kStdcall;
   sym_kCdecl; sym_kCppdecl; sym_kPascal; sym_kRegister; sym_kMwpascal; sym_kMessage;
   sym_kDeprecated; sym_kExperimental; sym_kPlatform; sym_kUnimplemented; sym_kCvar; sym_kExport;
   sym_kFar; sym_kNear; sym_kSafecall; sym_kAssembler; sym_kNostackframe; sym_kInterrupt;
   sym_kNoreturn; sym_kIocheck; sym_kLocal; sym_kHardfloat; sym_kSoftfloat; sym_kMs_abi_default;
   sym_kMs_abi_cdecl; sym_kSaveregisters; sym_kSysv_abi_default; sym_kSysv_abi_cdecl;
   sym_kVectorcall; sym_kVarargs; sym_kWinapi; sym_kAlias; sym_kAsm; sym_kBegin; sym_kCase;
   sym_kClass; sym_kConst; sym_kConstructor; sym_kDestructor; sym_kExports; sym_kFor;
   sym_kFunction; sym_kGoto; sym_kIf; sym_kInherited; sym_kLabel; sym_kNil; sym_kNot;
   sym_kProcedure; sym_kProperty; sym_kRaise; sym_kRepeat; sym_kResourcestring; sym_kString;
   sym_kThreadvar; sym_kTry; sym_kType; sym_kUses; sym_kVar; sym_kWhile; sym_kWith]].

(** State 1351. *)
Definition ts_parse_table_1351 : parse_row :=
  [ACTIONS 11021 [anon_sym_SEMI; anon_sym_COMMA; anon_sym_LBRACK];
   ACTIONS 11023 [anon_sym_LPAREN]; ACTIONS 11021 [aux_sym__literalString_token1;
   anon_sym_POUND]; ACTIONS 11023 [aux_sym__literalInt_token1];
   ACTIONS 11021 [aux_sym__literalInt_token2; aux_sym__literalInt_token3];
   ACTIONS 11023 [aux_sym__literalFloat_token1]; ACTIONS 11021 [aux_sym_ppUsesBlock_token1;
   aux_sym_ppUsesBlock_token2; aux_sym_ppUsesBlock_token3]; ACTIONS 11023 [sym_kAdd; sym_kSub];
   ACTIONS 11021 [sym_kAt; sym_kTrue; sym_kFalse]; ACTIONS 3 [sym__space];
   ACTIONS 5 [sym_ppDirective]; ACTIONS 3 [sym_comment]; ACTIONS 11021 [sym_ppFragmentExpr;
   sym__literalStringMultiline; sym_identifier; sym_kDefault; sym_kNodefault; sym_kDispId;
   sym_kGeneric; sym_kSpecialize; sym_kOperator; sym_kPublic; sym_kStatic; sym_kVirtual;
   sym_kAbstract; sym_kDynamic; sym_kOverride; sym_kOverload; sym_kReintroduce; sym_kStdcall;
   sym_kCdecl; sym_kCppdecl; sym_kPascal; sym_kRegister; sym_kMwpascal; sym_kMessage;
   sym_kDeprecated; sym_kExperimental; sym_kPlatform; sym_kUnimplemented; sym_kCvar; sym_kExport;
   sym_kFar; sym_kNear; sym_kSafecall; sym_kAssembler; sym_kNostackframe; sym_kInterrupt;
   sym_kNoreturn; sym_kIocheck; sym_kLocal; sym_kHardfloat; sym_kSoftfloat; sym_kMs_abi_default;
   sym_kMs_abi_cdecl; sym_kSaveregisters; sym_kSysv_abi_default; sym_kSysv_abi_cdecl;
   sym_kVectorcall; sym_kVarargs; sym_kWinapi; sym_kAlias; sym_kAsm; sym_kBegin; sym_kCase;
   sym_kClass; sym_kConst; sym_kConstructor; sym_kDestructor; sym_kExports; sym_kFor;
   sym_kFunction; sym_kGoto; sym_kIf; sym_kInherited; sym_kLabel; sym_kNil; sym_kNot;
   sym_kProcedure; sym_kProperty; sym_kRaise; sym_kRepeat; sym_kResourcestring; sym_kString;
   sym_kThreadvar; sym_kTry; sym_kType; sym_kUses; sym_kVar; sym_kWhile; sym_kWith]].

(** State 1352. *)
Definition ts_parse_table_1352 : parse_row :=
  [ACTIONS 11025 [anon_sym_SEMI; anon_sym_COMMA; anon_sym_LBRACK];
   ACTIONS 11027 [anon_sym_LPAREN]; ACTIONS 11025 [aux_sym__literalString_token1;
   anon_sym_POUND]; ACTIONS 11027 [aux_sym__literalInt_token1];
   ACTIONS 11025 [aux_sym__literalInt_token2; aux_sym__literalInt_token3];
   ACTIONS 11027 [aux_sym__literalFloat_token1]; ACTIONS 11025 [aux_sym_ppUsesBlock_token1;
   aux_sym_ppUsesBlock_token2; aux_sym_ppUsesBlock_token3]; ACTIONS 11027 [sym_kAdd; sym_kSub];
   ACTIONS 11025 [sym_kAt; sym_kTrue; sym_kFalse]; ACTIONS 3 [sym__space];
   ACTIONS 5 [sym_ppDirective]; ACTIONS 3 [sym_comment]; ACTIONS 11025 [sym_ppFragmentExpr;
   sym__literalStringMultiline; sym_identifier; sym_kDefault; sym_kNodefault; sym_kDispId;
   sym_kGeneric; sym_kSpecialize; sym_kOperator; sym_kPublic; sym_kStatic; sym_kVirtual;
   sym_kAbstract; sym_kDynamic; sym_kOverride; sym_kOverload; sym_kReintroduce; sym_kStdcall;
   sym_kCdecl; sym_kCppdecl; sym_kPascal; sym_kRegister; sym_kMwpascal; sym_kMessage;
   sym_kDeprecated; sym_kExperimental; sym_kPlatform; sym_kUnimplemented; sym_kCvar; sym_kExport;
   sym_kFar; sym_kNear; sym_kSafecall; sym_kAssembler; sym_kNostackframe; sym_kInterrupt;
   sym_kNoreturn; sym_kIocheck; sym_kLocal; sym_kHardfloat; sym_kSoftfloat; sym_kMs_abi_default;
   sym_kMs_abi_cdecl; sym_kSaveregisters; sym_kSysv_abi_default; sym_kSysv_abi_cdecl;
   sym_kVectorcall; sym_kVarargs; sym_kWinapi; sym_kAlias; sym_kAsm; sym_kBegin; sym_kCase;
   sym_kClass; sym_kConst; sym_kConstructor; sym_kDestructor; sym_kExports; sym_kFor;
   sym_kFunction; sym_kGoto; sym_kIf; sym_kInherited; sym_kLabel; sym_kNil; sym_kNot;
   sym_kProcedure; sym_kProperty; sym_kRaise; sym_kRepeat; sym_kResourcestring; sym_kString;
   sym_kThreadvar; sym_kTry; sym_kType; sym_kUses; sym_kVar; sym_kWhile; sym_kWith]].

(** State 1353. *)
Definition ts_parse_table_1353 : parse_row :=
  [ACTIONS 11029 [anon_sym_SEMI; anon_sym_COMMA; anon_sym_LBRACK];
   ACTIONS 11031 [anon_sym_LPAREN]; ACTIONS 11029 [aux_sym__literalString_token1;
   anon_sym_POUND]; ACTIONS 11031 [aux_sym__literalInt_token1];
   ACTIONS 11029 [aux_sym__literalInt_token2; aux_sym__literalInt_token3];
   ACTIONS 11031 [aux_sym__literalFloat_token1]; ACTIONS 11029 [aux_sym_ppUsesBlock_token1;
   aux_sym_ppUsesBlock_token2; aux_sym_ppUsesBlock_token3]; ACTIONS 11031 [sym_kAdd; sym_kSub];
   ACTIONS 11029 [sym_kAt; sym_kTrue; sym_kFalse]; ACTIONS 3 [sym__space];
   ACTIONS 5 [sym_ppDirective]; ACTIONS 3 [sym_comment]; ACTIONS 11029 [sym_ppFragmentExpr;
   sym__literalStringMultiline; sym_identifier; sym_kDefault; sym_kNodefault; sym_kDispId;
   sym_kGeneric; sym_kSpecialize; sym_kOperator; sym_kPublic; sym_kStatic; sym_kVirtual;
   sym_kAbstract; sym_kDynamic; sym_kOverride; sym_kOverload; sym_kReintroduce; sym_kStdcall;
   sym_kCdecl; sym_kCppdecl; sym_kPascal; sym_kRegister; sym_kMwpascal; sym_kMessage;
   sym_kDeprecated; sym_kExperimental; sym_kPlatform; sym_kUnimplemented; sym_kCvar; sym_kExport;
   sym_kFar; sym_kNear; sym_kSafecall; sym_kAssembler; sym_kNostackframe; sym_kInterrupt;
   sym_kNoreturn; sym_kIocheck; sym_kLocal; sym_kHardfloat; sym_kSoftfloat; sym_kMs_abi_default;
   sym_kMs_abi_cdecl; sym_kSaveregisters; sym_kSysv_abi_default; sym_kSysv_abi_cdecl;
   sym_kVectorcall; sym_kVarargs; sym_kWinapi; sym_kAlias; sym_kAsm; sym_kBegin; sym_kCase;
   sym_kClass; sym_kConst; sym_kConstructor; sym_kDestructor; sym_kExports; sym_kFor;
   sym_kFunction; sym_kGoto; sym_kIf; sym_kInherited; sym_kLabel; sym_kNil; sym_kNot;
   sym_kProcedure; sym_kProperty; sym_kRaise; sym_kRepeat; sym_kResourcestring; sym_kString;
   sym_kThreadvar; sym_kTry; sym_kType; sym_kUses; sym_kVar; sym_kWhile; sym_kWith]].

(** State 1354. *)
Definition ts_parse_table_1354 : parse_row :=
  [ACTIONS 11033 [anon_sym_SEMI; anon_sym_COMMA; anon_sym_LBRACK];
   ACTIONS 11035 [anon_sym_LPAREN]; ACTIONS 11033 [aux_sym__literalString_token1;
   anon_sym_POUND]; ACTIONS 11035 [aux_sym__literalInt_token1];
   ACTIONS 11033 [aux_sym__literalInt_token2; aux_sym__literalInt_token3];
   ACTIONS 11035 [aux_sym__literalFloat_token1]; ACTIONS 11033 [aux_sym_ppUsesBlock_token1;
   aux_sym_ppUsesBlock_token2; aux_sym_ppUsesBlock_token3]; ACTIONS 11035 [sym_kAdd; sym_kSub];
   ACTIONS 11033 [sym_kAt; sym_kTrue; sym_kFalse]; ACTIONS 3 [sym__space];
   ACTIONS 5 [sym_ppDirective]; ACTIONS 3 [sym_comment]; ACTIONS 11033 [sym_ppFragmentExpr;
   sym__literalStringMultiline; sym_identifier; sym_kDefault; sym_kNodefault; sym_kDispId;
   sym_kGeneric; sym_kSpecialize; sym_kOperator; sym_kPublic; sym_kStatic; sym_kVirtual;
   sym_kAbstract; sym_kDynamic; sym_kOverride; sym_kOverload; sym_kReintroduce; sym_kStdcall;
   sym_kCdecl; sym_kCppdecl; sym_kPascal; sym_kRegister; sym_kMwpascal; sym_kMessage;
   sym_kDeprecated; sym_kExperimental; sym_kPlatform; sym_kUnimplemented; sym_kCvar; sym_kExport;
   sym_kFar; sym_kNear; sym_kSafecall; sym_kAssembler; sym_kNostackframe; sym_kInterrupt;
   sym_kNoreturn; sym_kIocheck; sym_kLocal; sym_kHardfloat; sym_kSoftfloat; sym_kMs_abi_default;
   sym_kMs_abi_cdecl; sym_kSaveregisters; sym_kSysv_abi_default; sym_kSysv_abi_cdecl;
   sym_kVectorcall; sym_kVarargs; sym_kWinapi; sym_kAlias; sym_kAsm; sym_kBegin; sym_kCase;
   sym_kClass; sym_kConst; sym_kConstructor; sym_kDestructor; sym_kExports; sym_kFor;
   sym_kFunction; sym_kGoto; sym_kIf; sym_kInherited; sym_kLabel; sym_kNil; sym_kNot;
   sym_kProcedure; sym_kProperty; sym_kRaise; sym_kRepeat; sym_kResourcestring; sym_kString;
   sym_kThreadvar; sym_kTry; sym_kType; sym_kUses; sym_kVar; sym_kWhile; sym_kWith]].

(** State 1355. *)
Definition ts_parse_table_1355 : parse_row :=
  [ACTIONS 11037 [anon_sym_SEMI; anon_sym_COMMA; anon_sym_LBRACK];
   ACTIONS 11039 [anon_sym_LPAREN]; ACTIONS 11037 [aux_sym__literalString_token1;
   anon_sym_POUND]; ACTIONS 11039 [aux_sym__literalInt_token1];
   ACTIONS 11037 [aux_sym__literalInt_token2; aux_sym__literalInt_token3];
   ACTIONS 11039 [aux_sym__literalFloat_token1]; ACTIONS 11037 [aux_sym_ppUsesBlock_token1;
   aux_sym_ppUsesBlock_token2; aux_sym_ppUsesBlock_token3]; ACTIONS 11039 [sym_kAdd; sym_kSub];
   ACTIONS 11037 [sym_kAt; sym_kTrue; sym_kFalse]; ACTIONS 3 [sym__space];
   ACTIONS 5 [sym_ppDirective]; ACTIONS 3 [sym_comment]; ACTIONS 11037 [sym_ppFragmentExpr;
   sym__literalStringMultiline; sym_identifier; sym_kDefault; sym_kNodefault; sym_kDispId;
   sym_kGeneric; sym_kSpecialize; sym_kOperator; sym_kPublic; sym_kStatic; sym_kVirtual;
   sym_kAbstract; sym_kDynamic; sym_kOverride; sym_kOverload; sym_kReintroduce; sym_kStdcall;
   sym_kCdecl; sym_kCppdecl; sym_kPascal; sym_kRegister; sym_kMwpascal; sym_kMessage;
   sym_kDeprecated; sym_kExperimental; sym_kPlatform; sym_kUnimplemented; sym_kCvar; sym_kExport;
   sym_kFar; sym_kNear; sym_kSafecall; sym_kAssembler; sym_kNostackframe; sym_kInterrupt;
   sym_kNoreturn; sym_kIocheck; sym_kLocal; sym_kHardfloat; sym_kSoftfloat; sym_kMs_abi_default;
   sym_kMs_abi_cdecl; sym_kSaveregisters; sym_kSysv_abi_default; sym_kSysv_abi_cdecl;
   sym_kVectorcall; sym_kVarargs; sym_kWinapi; sym_kAlias; sym_kAsm; sym_kBegin; sym_kCase;
   sym_kClass; sym_kConst; sym_kConstructor; sym_kDestructor; sym_kExports; sym_kFor;
   sym_kFunction; sym_kGoto; sym_kIf; sym_kInherited; sym_kLabel; sym_kNil; sym_kNot;
   sym_kProcedure; sym_kProperty; sym_kRaise; sym_kRepeat; sym_kResourcestring; sym_kString;
   sym_kThreadvar; sym_kTry; sym_kType; sym_kUses; sym_kVar; sym_kWhile; sym_kWith]].

(** State 1356. *)
Definition ts_parse_table_1356 : parse_row :=
  [ACTIONS 11041 [anon_sym_SEMI; anon_sym_COMMA; anon_sym_LBRACK];
   ACTIONS 11043 [anon_sym_LPAREN]; ACTIONS 11041 [aux_sym__literalString_token1;
   anon_sym_POUND]; ACTIONS 11043 [aux_sym__literalInt_token1];
   ACTIONS 11041 [aux_sym__literalInt_token2; aux_sym__literalInt_token3];
   ACTIONS 11043 [aux_sym__literalFloat_token1]; ACTIONS 11041 [aux_sym_ppUsesBlock_token1;
   aux_sym_ppUsesBlock_token2; aux_sym_ppUsesBlock_token3]; ACTIONS 11043 [sym_kAdd; sym_kSub];
   ACTIONS 11041 [sym_kAt; sym_kTrue; sym_kFalse]; ACTIONS 3 [sym__space];
   ACTIONS 5 [sym_ppDirective]; ACTIONS 3 [sym_comment]; ACTIONS 11041 [sym_ppFragmentExpr;
   sym__literalStringMultiline; sym_identifier; sym_kDefault; sym_kNodefault; sym_kDispId;
   sym_kGeneric; sym_kSpecialize; sym_kOperator; sym_kPublic; sym_kStatic; sym_kVirtual;
   sym_kAbstract; sym_kDynamic; sym_kOverride; sym_kOverload; sym_kReintroduce; sym_kStdcall;
   sym_kCdecl; sym_kCppdecl; sym_kPascal; sym_kRegister; sym_kMwpascal; sym_kMessage;
   sym_kDeprecated; sym_kExperimental; sym_kPlatform; sym_kUnimplemented; sym_kCvar; sym_kExport;
   sym_kFar; sym_kNear; sym_kSafecall; sym_kAssembler; sym_kNostackframe; sym_kInterrupt;
   sym_kNoreturn; sym_kIocheck; sym_kLocal; sym_kHardfloat; sym_kSoftfloat; sym_kMs_abi_default;
   sym_kMs_abi_cdecl; sym_kSaveregisters; sym_kSysv_abi_default; sym_kSysv_abi_cdecl;
   sym_kVectorcall; sym_kVarargs; sym_kWinapi; sym_kAlias; sym_kAsm; sym_kBegin; sym_kCase;
   sym_kClass; sym_kConst; sym_kConstructor; sym_kDestructor; sym_kExports; sym_kFor;
   sym_kFunction; sym_kGoto; sym_kIf; sym_kInherited; sym_kLabel; sym_kNil; sym_kNot;
   sym_kProcedure; sym_kProperty; sym_kRaise; sym_kRepeat; sym_kResourcestring; sym_kString;
   sym_kThreadvar; sym_kTry; sym_kType; sym_kUses; sym_kVar; sym_kWhile; sym_kWith]].

(** State 1357. *)
Definition ts_parse_table_1357 : parse_row :=
  [ACTIONS 11045 [anon_sym_SEMI; anon_sym_COMMA; anon_sym_LBRACK];
   ACTIONS 11047 [anon_sym_LPAREN]; ACTIONS 11045 [aux_sym__literalString_token1;
   anon_sym_POUND]; ACTIONS 11047 [aux_sym__literalInt_token1];
   ACTIONS 11045 [aux_sym__literalInt_token2; aux_sym__literalInt_token3];
   ACTIONS 11047 [aux_sym__literalFloat_token1]; ACTIONS 11045 [aux_sym_ppUsesBlock_token1;
   aux_sym_ppUsesBlock_token2; aux_sym_ppUsesBlock_token3]; ACTIONS 11047 [sym_kAdd; sym_kSub];
   ACTIONS 11045 [sym_kAt; sym_kTrue; sym_kFalse]; ACTIONS 3 [sym__space];
   ACTIONS 5 [sym_ppDirective]; ACTIONS 3 [sym_comment]; ACTIONS 11045 [sym_ppFragmentExpr;
   sym__literalStringMultiline; sym_identifier; sym_kDefault; sym_kNodefault; sym_kDispId;
   sym_kGeneric; sym_kSpecialize; sym_kOperator; sym_kPublic; sym_kStatic; sym_kVirtual;
   sym_kAbstract; sym_kDynamic; sym_kOverride; sym_kOverload; sym_kReintroduce; sym_kStdcall;
   sym_kCdecl; sym_kCppdecl; sym_kPascal; sym_kRegister; sym_kMwpascal; sym_kMessage;
   sym_kDeprecated; sym_kExperimental; sym_kPlatform; sym_kUnimplemented; sym_kCvar; sym_kExport;
   sym_kFar; sym_kNear; sym_kSafecall; sym_kAssembler; sym_kNostackframe; sym_kInterrupt;
   sym_kNoreturn; sym_kIocheck; sym_kLocal; sym_kHardfloat; sym_kSoftfloat; sym_kMs_abi_default;
   sym_kMs_abi_cdecl; sym_kSaveregisters; sym_kSysv_abi_default; sym_kSysv_abi_cdecl;
   sym_kVectorcall; sym_kVarargs; sym_kWinapi; sym_kAlias; sym_kAsm; sym_kBegin; sym_kCase;
   sym_kClass; sym_kConst; sym_kConstructor; sym_kDestructor; sym_kExports; sym_kFor;
   sym_kFunction; sym_kGoto; sym_kIf; sym_kInherited; sym_kLabel; sym_kNil; sym_kNot;
   sym_kProcedure; sym_kProperty; sym_kRaise; sym_kRepeat; sym_kResourcestring; sym_kString;
   sym_kThreadvar; sym_kTry; sym_kType; sym_kUses; sym_kVar; sym_kWhile; sym_kWith]].

(** State 1358. *)
Definition ts_parse_table_1358 : parse_row :=
  [ACTIONS 10806 [anon_sym_SEMI; anon_sym_COMMA; anon_sym_LBRACK];
   ACTIONS 10808 [anon_sym_LPAREN]; ACTIONS 10806 [aux_sym__literalString_token1;
   anon_sym_POUND]; ACTIONS 10808 [aux_sym__literalInt_token1];
   ACTIONS 10806 [aux_sym__literalInt_token2; aux_sym__literalInt_token3];
   ACTIONS 10808 [aux_sym__literalFloat_token1]; ACTIONS 10806 [aux_sym_ppUsesBlock_token1;
   aux_sym_ppUsesBlock_token2; aux_sym_ppUsesBlock_token3]; ACTIONS 10808 [sym_kAdd; sym_kSub];
   ACTIONS 10806 [sym_kAt; sym_kTrue; sym_kFalse]; ACTIONS 3 [sym__space];
   ACTIONS 5 [sym_ppDirective]; ACTIONS 3 [sym_comment]; ACTIONS 10806 [sym_ppFragmentExpr;
   sym__literalStringMultiline; sym_identifier; sym_kDefault; sym_kNodefault; sym_kDispId;
   sym_kGeneric; sym_kSpecialize; sym_kOperator; sym_kPublic; sym_kStatic; sym_kVirtual;
   sym_kAbstract; sym_kDynamic; sym_kOverride; sym_kOverload; sym_kReintroduce; sym_kStdcall;
   sym_kCdecl; sym_kCppdecl; sym_kPascal; sym_kRegister; sym_kMwpascal; sym_kMessage;
   sym_kDeprecated; sym_kExperimental; sym_kPlatform; sym_kUnimplemented; sym_kCvar; sym_kExport;
   sym_kFar; sym_kNear; sym_kSafecall; sym_kAssembler; sym_kNostackframe; sym_kInterrupt;
   sym_kNoreturn; sym_kIocheck; sym_kLocal; sym_kHardfloat; sym_kSoftfloat; sym_kMs_abi_default;
   sym_kMs_abi_cdecl; sym_kSaveregisters; sym_kSysv_abi_default; sym_kSysv_abi_cdecl;
   sym_kVectorcall; sym_kVarargs; sym_kWinapi; sym_kAlias; sym_kAsm; sym_kBegin; sym_kCase;
   sym_kClass; sym_kConst; sym_kConstructor; sym_kDestructor; sym_kExports; sym_kFor;
   sym_kFunction; sym_kGoto; sym_kIf; sym_kInherited; sym_kLabel; sym_kNil; sym_kNot;
   sym_kProcedure; sym_kProperty; sym_kRaise; sym_kRepeat; sym_kResourcestring; sym_kString;
   sym_kThreadvar; sym_kTry; sym_kType; sym_kUses; sym_kVar; sym_kWhile; sym_kWith]].

(** State 1359. *)
Definition ts_parse_table_1359 : parse_row :=
  [ACTIONS 10850 [anon_sym_SEMI; anon_sym_COMMA; anon_sym_LBRACK];
   ACTIONS 10852 [anon_sym_LPAREN]; ACTIONS 10850 [aux_sym__literalString_token1;
   anon_sym_POUND]; ACTIONS 10852 [aux_sym__literalInt_token1];
   ACTIONS 10850 [aux_sym__literalInt_token2; aux_sym__literalInt_token3];
   ACTIONS 10852 [aux_sym__literalFloat_token1]; ACTIONS 10850 [aux_sym_ppUsesBlock_token1;
   aux_sym_ppUsesBlock_token2; aux_sym_ppUsesBlock_token3]; ACTIONS 10852 [sym_kAdd; sym_kSub];
   ACTIONS 10850 [sym_kAt; sym_kTrue; sym_kFalse]; ACTIONS 3 [sym__space];
   ACTIONS 5 [sym_ppDirective]; ACTIONS 3 [sym_comment]; ACTIONS 10850 [sym_ppFragmentExpr;
   sym__literalStringMultiline; sym_identifier; sym_kDefault; sym_kNodefault; sym_kDispId;
   sym_kGeneric; sym_kSpecialize; sym_kOperator; sym_kPublic; sym_kStatic; sym_kVirtual;
   sym_kAbstract; sym_kDynamic; sym_kOverride; sym_kOverload; sym_kReintroduce; sym_kStdcall;
   sym_kCdecl; sym_kCppdecl; sym_kPascal; sym_kRegister; sym_kMwpascal; sym_kMessage;
   sym_kDeprecated; sym_kExperimental; sym_kPlatform; sym_kUnimplemented; sym_kCvar; sym_kExport;
   sym_kFar; sym_kNear; sym_kSafecall; sym_kAssembler; sym_kNostackframe; sym_kInterrupt;
   sym_kNoreturn; sym_kIocheck; sym_kLocal; sym_kHardfloat; sym_kSoftfloat; sym_kMs_abi_default;
   sym_kMs_abi_cdecl; sym_kSaveregisters; sym_kSysv_abi_default; sym_kSysv_abi_cdecl;
   sym_kVectorcall; sym_kVarargs; sym_kWinapi; sym_kAlias; sym_kAsm; sym_kBegin; sym_kCase;
   sym_kClass; sym_kConst; sym_kConstructor; sym_kDestructor; sym_kExports; sym_kFor;
   sym_kFunction; sym_kGoto; sym_kIf; sym_kInherited; sym_kLabel; sym_kNil; sym_kNot;
   sym_kProcedure; sym_kProperty; sym_kRaise; sym_kRepeat; sym_kResourcestring; sym_kString;
   sym_kThreadvar; sym_kTry; sym_kType; sym_kUses; sym_kVar; sym_kWhile; sym_kWith]].

(** State 1360. *)
Definition ts_parse_table_1360 : parse_row :=
  [ACTIONS 10854 [anon_sym_SEMI; anon_sym_COMMA; anon_sym_LBRACK];
   ACTIONS 10856 [anon_sym_LPAREN]; ACTIONS 10854 [aux_sym__literalString_token1;
   anon_sym_POUND]; ACTIONS 10856 [aux_sym__literalInt_token1];
   ACTIONS 10854 [aux_sym__literalInt_token2; aux_sym__literalInt_token3];
   ACTIONS 10856 [aux_sym__literalFloat_token1]; ACTIONS 10854 [aux_sym_ppUsesBlock_token1;
   aux_sym_ppUsesBlock_token2; aux_sym_ppUsesBlock_token3]; ACTIONS 10856 [sym_kAdd; sym_kSub];
   ACTIONS 10854 [sym_kAt; sym_kTrue; sym_kFalse]; ACTIONS 3 [sym__space];
   ACTIONS 5 [sym_ppDirective]; ACTIONS 3 [sym_comment]; ACTIONS 10854 [sym_ppFragmentExpr;
   sym__literalStringMultiline; sym_identifier; sym_kDefault; sym_kNodefault; sym_kDispId;
   sym_kGeneric; sym_kSpecialize; sym_kOperator; sym_kPublic; sym_kStatic; sym_kVirtual;
   sym_kAbstract; sym_kDynamic; sym_kOverride; sym_kOverload; sym_kReintroduce; sym_kStdcall;
   sym_kCdecl; sym_kCppdecl; sym_kPascal; sym_kRegister; sym_kMwpascal; sym_kMessage;
   sym_kDeprecated; sym_kExperimental; sym_kPlatform; sym_kUnimplemented; sym_kCvar; sym_kExport;
   sym_kFar; sym_kNear; sym_kSafecall; sym_kAssembler; sym_kNostackframe; sym_kInterrupt;
   sym_kNoreturn; sym_kIocheck; sym_kLocal; sym_kHardfloat; sym_kSoftfloat; sym_kMs_abi_default;
   sym_kMs_abi_cdecl; sym_kSaveregisters; sym_kSysv_abi_default; sym_kSysv_abi_cdecl;
   sym_kVectorcall; sym_kVarargs; sym_kWinapi; sym_kAlias; sym_kAsm; sym_kBegin; sym_kCase;
   sym_kClass; sym_kConst; sym_kConstructor; sym_kDestructor; sym_kExports; sym_kFor;
   sym_kFunction; sym_kGoto; sym_kIf; sym_kInherited; sym_kLabel; sym_kNil; sym_kNot;
   sym_kProcedure; sym_kProperty; sym_kRaise; sym_kRepeat; sym_kResourcestring; sym_kString;
   sym_kThreadvar; sym_kTry; sym_kType; sym_kUses; sym_kVar; sym_kWhile; sym_kWith]].

(** State 1361. *)
Definition ts_parse_table_1361 : parse_row :=
  [ACTIONS 10898 [anon_sym_SEMI; anon_sym_COMMA; anon_sym_LBRACK];
   ACTIONS 10900 [anon_sym_LPAREN]; ACTIONS 10898 [aux_sym__literalString_token1;
   anon_sym_POUND]; ACTIONS 10900 [aux_sym__literalInt_token1];
   ACTIONS 10898 [aux_sym__literalInt_token2; aux_sym__literalInt_token3];
   ACTIONS 10900 [aux_sym__literalFloat_token1]; ACTIONS 10898 [aux_sym_ppUsesBlock_token1;
   aux_sym_ppUsesBlock_token2; aux_sym_ppUsesBlock_token3]; ACTIONS 10900 [sym_kAdd; sym_kSub];
   ACTIONS 10898 [sym_kAt; sym_kTrue; sym_kFalse]; ACTIONS 3 [sym__space];
   ACTIONS 5 [sym_ppDirective]; ACTIONS 3 [sym_comment]; ACTIONS 10898 [sym_ppFragmentExpr;
   sym__literalStringMultiline; sym_identifier; sym_kDefault; sym_kNodefault; sym_kDispId;
   sym_kGeneric; sym_kSpecialize; sym_kOperator; sym_kPublic; sym_kStatic; sym_kVirtual;
   sym_kAbstract; sym_kDynamic; sym_kOverride; sym_kOverload; sym_kReintroduce; sym_kStdcall;
   sym_kCdecl; sym_kCppdecl; sym_kPascal; sym_kRegister; sym_kMwpascal; sym_kMessage;
   sym_kDeprecated; sym_kExperimental; sym_kPlatform; sym_kUnimplemented; sym_kCvar; sym_kExport;
   sym_kFar; sym_kNear; sym_kSafecall; sym_kAssembler; sym_kNostackframe; sym_kInterrupt;
   sym_kNoreturn; sym_kIocheck; sym_kLocal; sym_kHardfloat; sym_kSoftfloat; sym_kMs_abi_default;
   sym_kMs_abi_cdecl; sym_kSaveregisters; sym_kSysv_abi_default; sym_kSysv_abi_cdecl;
   sym_kVectorcall; sym_kVarargs; sym_kWinapi; sym_kAlias; sym_kAsm; sym_kBegin; sym_kCase;
   sym_kClass; sym_kConst; sym_kConstructor; sym_kDestructor; sym_kExports; sym_kFor;
   sym_kFunction; sym_kGoto; sym_kIf; sym_kInherited; sym_kLabel; sym_kNil; sym_kNot;
   sym_kProcedure; sym_kProperty; sym_kRaise; sym_kRepeat; sym_kResourcestring; sym_kString;
   sym_kThreadvar; sym_kTry; sym_kType; sym_kUses; sym_kVar; sym_kWhile; sym_kWith]].

(** State 1362. *)
Definition ts_parse_table_1362 : parse_row :=
  [ACTIONS 10906 [anon_sym_SEMI; anon_sym_COMMA; anon_sym_LBRACK];
   ACTIONS 10908 [anon_sym_LPAREN]; ACTIONS 10906 [aux_sym__literalString_token1;
   anon_sym_POUND]; ACTIONS 10908 [aux_sym__literalInt_token1];
   ACTIONS 10906 [aux_sym__literalInt_token2; aux_sym__literalInt_token3];
   ACTIONS 10908 [aux_sym__literalFloat_token1]; ACTIONS 10906 [aux_sym_ppUsesBlock_token1;
   aux_sym_ppUsesBlock_token2; aux_sym_ppUsesBlock_token3]; ACTIONS 10908 [sym_kAdd; sym_kSub];
   ACTIONS 10906 [sym_kAt; sym_kTrue; sym_kFalse]; ACTIONS 3 [sym__space];
   ACTIONS 5 [sym_ppDirective]; ACTIONS 3 [sym_comment]; ACTIONS 10906 [sym_ppFragmentExpr;
   sym__literalStringMultiline; sym_identifier; sym_kDefault; sym_kNodefault; sym_kDispId;
   sym_kGeneric; sym_kSpecialize; sym_kOperator; sym_kPublic; sym_kStatic; sym_kVirtual;
   sym_kAbstract; sym_kDynamic; sym_kOverride; sym_kOverload; sym_kReintroduce; sym_kStdcall;
   sym_kCdecl; sym_kCppdecl; sym_kPascal; sym_kRegister; sym_kMwpascal; sym_kMessage;
   sym_kDeprecated; sym_kExperimental; sym_kPlatform; sym_kUnimplemented; sym_kCvar; sym_kExport;
   sym_kFar; sym_kNear; sym_kSafecall; sym_kAssembler; sym_kNostackframe; sym_kInterrupt;
   sym_kNoreturn; sym_kIocheck; sym_kLocal; sym_kHardfloat; sym_kSoftfloat; sym_kMs_abi_default;
   sym_kMs_abi_cdecl; sym_kSaveregisters; sym_kSysv_abi_default; sym_kSysv_abi_cdecl;
   sym_kVectorcall; sym_kVarargs; sym_kWinapi; sym_kAlias; sym_kAsm; sym_kBegin; sym_kCase;
   sym_kClass; sym_kConst; sym_kConstructor; sym_kDestructor; sym_kExports; sym_kFor;
   sym_kFunction; sym_kGoto; sym_kIf; sym_kInherited; sym_kLabel; sym_kNil; sym_kNot;
   sym_kProcedure; sym_kProperty; sym_kRaise; sym_kRepeat; sym_kResourcestring; sym_kString;
   sym_kThreadvar; sym_kTry; sym_kType; sym_kUses; sym_kVar; sym_kWhile; sym_kWith]].

(** State 1363. *)
Definition ts_parse_table_1363 : parse_row :=
  [ACTIONS 10858 [anon_sym_SEMI; anon_sym_COMMA; anon_sym_LBRACK];
   ACTIONS 10860 [anon_sym_LPAREN]; ACTIONS 10858 [aux_sym__literalString_token1;
   anon_sym_POUND]; ACTIONS 10860 [aux_sym__literalInt_token1];
   ACTIONS 10858 [aux_sym__literalInt_token2; aux_sym__literalInt_token3];
   ACTIONS 10860 [aux_sym__literalFloat_token1]; ACTIONS 10858 [aux_sym_ppUsesBlock_token1;
   aux_sym_ppUsesBlock_token2; aux_sym_ppUsesBlock_token3]; ACTIONS 10860 [sym_kAdd; sym_kSub];
   ACTIONS 10858 [sym_kAt; sym_kTrue; sym_kFalse]; ACTIONS 3 [sym__space];
   ACTIONS 5 [sym_ppDirective]; ACTIONS 3 [sym_comment]; ACTIONS 10858 [sym_ppFragmentExpr;
   sym__literalStringMultiline; sym_identifier; sym_kDefault; sym_kNodefault; sym_kDispId;
   sym_kGeneric; sym_kSpecialize; sym_kOperator; sym_kPublic; sym_kStatic; sym_kVirtual;
   sym_kAbstract; sym_kDynamic; sym_kOverride; sym_kOverload; sym_kReintroduce; sym_kStdcall;
   sym_kCdecl; sym_kCppdecl; sym_kPascal; sym_kRegister; sym_kMwpascal; sym_kMessage;
   sym_kDeprecated; sym_kExperimental; sym_kPlatform; sym_kUnimplemented; sym_kCvar; sym_kExport;
   sym_kFar; sym_kNear; sym_kSafecall; sym_kAssembler; sym_kNostackframe; sym_kInterrupt;
   sym_kNoreturn; sym_kIocheck; sym_kLocal; sym_kHardfloat; sym_kSoftfloat; sym_kMs_abi_default;
   sym_kMs_abi_cdecl; sym_kSaveregisters; sym_kSysv_abi_default; sym_kSysv_abi_cdecl;
   sym_kVectorcall; sym_kVarargs; sym_kWinapi; sym_kAlias; sym_kAsm; sym_kBegin; sym_kCase;
   sym_kClass; sym_kConst; sym_kConstructor; sym_kDestructor; sym_kExports; sym_kFor;
   sym_kFunction; sym_kGoto; sym_kIf; sym_kInherited; sym_kLabel; sym_kNil; sym_kNot;
   sym_kProcedure; sym_kProperty; sym_kRaise; sym_kRepeat; sym_kResourcestring; sym_kString;
   sym_kThreadvar; sym_kTry; sym_kType; sym_kUses; sym_kVar; sym_kWhile; sym_kWith]].

(** State 1364. *)
Definition ts_parse_table_1364 : parse_row :=
  [ACTIONS 10910 [anon_sym_SEMI; anon_sym_COMMA; anon_sym_LBRACK];
   ACTIONS 10912 [anon_sym_LPAREN]; ACTIONS 10910 [aux_sym__literalString_token1;
   anon_sym_POUND]; ACTIONS 10912 [aux_sym__literalInt_token1];
   ACTIONS 10910 [aux_sym__literalInt_token2; aux_sym__literalInt_token3];
   ACTIONS 10912 [aux_sym__literalFloat_token1]; ACTIONS 10910 [aux_sym_ppUsesBlock_token1;
   aux_sym_ppUsesBlock_token2; aux_sym_ppUsesBlock_token3]; ACTIONS 10912 [sym_kAdd; sym_kSub];
   ACTIONS 10910 [sym_kAt; sym_kTrue; sym_kFalse]; ACTIONS 3 [sym__space];
   ACTIONS 5 [sym_ppDirective]; ACTIONS 3 [sym_comment]; ACTIONS 10910 [sym_ppFragmentExpr;
   sym__literalStringMultiline; sym_identifier; sym_kDefault; sym_kNodefault; sym_kDispId;
   sym_kGeneric; sym_kSpecialize; sym_kOperator; sym_kPublic; sym_kStatic; sym_kVirtual;
   sym_kAbstract; sym_kDynamic; sym_kOverride; sym_kOverload; sym_kReintroduce; sym_kStdcall;
   sym_kCdecl; sym_kCppdecl; sym_kPascal; sym_kRegister; sym_kMwpascal; sym_kMessage;
   sym_kDeprecated; sym_kExperimental; sym_kPlatform; sym_kUnimplemented; sym_kCvar; sym_kExport;
   sym_kFar; sym_kNear; sym_kSafecall; sym_kAssembler; sym_kNostackframe; sym_kInterrupt;
   sym_kNoreturn; sym_kIocheck; sym_kLocal; sym_kHardfloat; sym_kSoftfloat; sym_kMs_abi_default;
   sym_kMs_abi_cdecl; sym_kSaveregisters; sym_kSysv_abi_default; sym_kSysv_abi_cdecl;
   sym_kVectorcall; sym_kVarargs; sym_kWinapi; sym_kAlias; sym_kAsm; sym_kBegin; sym_kCase;
   sym_kClass; sym_kConst; sym_kConstructor; sym_kDestructor; sym_kExports; sym_kFor;
   sym_kFunction; sym_kGoto; sym_kIf; sym_kInherited; sym_kLabel; sym_kNil; sym_kNot;
   sym_kProcedure; sym_kProperty; sym_kRaise; sym_kRepeat; sym_kResourcestring; sym_kString;
   sym_kThreadvar; sym_kTry; sym_kType; sym_kUses; sym_kVar; sym_kWhile; sym_kWith]].

(** State 1365. *)
Definition ts_parse_table_1365 : parse_row :=
  [ACTIONS 10838 [anon_sym_SEMI; anon_sym_COMMA; anon_sym_LBRACK];
   ACTIONS 10840 [anon_sym_LPAREN]; ACTIONS 10838 [aux_sym__literalString_token1;
   anon_sym_POUND]; ACTIONS 10840 [aux_sym__literalInt_token1];
   ACTIONS 10838 [aux_sym__literalInt_token2; aux_sym__literalInt_token3];
   ACTIONS 10840 [aux_sym__literalFloat_token1]; ACTIONS 10838 [aux_sym_ppUsesBlock_token1;
   aux_sym_ppUsesBlock_token2; aux_sym_ppUsesBlock_token3]; ACTIONS 10840 [sym_kAdd; sym_kSub];
   ACTIONS 10838 [sym_kAt; sym_kTrue; sym_kFalse]; ACTIONS 3 [sym__space];
   ACTIONS 5 [sym_ppDirective]; ACTIONS 3 [sym_comment]; ACTIONS 10838 [sym_ppFragmentExpr;
   sym__literalStringMultiline; sym_identifier; sym_kDefault; sym_kNodefault; sym_kDispId;
   sym_kGeneric; sym_kSpecialize; sym_kOperator; sym_kPublic; sym_kStatic; sym_kVirtual;
   sym_kAbstract; sym_kDynamic; sym_kOverride; sym_kOverload; sym_kReintroduce; sym_kStdcall;
   sym_kCdecl; sym_kCppdecl; sym_kPascal; sym_kRegister; sym_kMwpascal; sym_kMessage;
   sym_kDeprecated; sym_kExperimental; sym_kPlatform; sym_kUnimplemented; sym_kCvar; sym_kExport;
   sym_kFar; sym_kNear; sym_kSafecall; sym_kAssembler; sym_kNostackframe; sym_kInterrupt;
   sym_kNoreturn; sym_kIocheck; sym_kLocal; sym_kHardfloat; sym_kSoftfloat; sym_kMs_abi_default;
   sym_kMs_abi_cdecl; sym_kSaveregisters; sym_kSysv_abi_default; sym_kSysv_abi_cdecl;
   sym_kVectorcall; sym_kVarargs; sym_kWinapi; sym_kAlias; sym_kAsm; sym_kBegin; sym_kCase;
   sym_kClass; sym_kConst; sym_kConstructor; sym_kDestructor; sym_kExports; sym_kFor;
   sym_kFunction; sym_kGoto; sym_kIf; sym_kInherited; sym_kLabel; sym_kNil; sym_kNot;
   sym_kProcedure; sym_kProperty; sym_kRaise; sym_kRepeat; sym_kResourcestring; sym_kString;
   sym_kThreadvar; sym_kTry; sym_kType; sym_kUses; sym_kVar; sym_kWhile; sym_kWith]].

(** State 1366. *)
Definition ts_parse_table_1366 : parse_row :=
  [ACTIONS 11049 [anon_sym_SEMI; anon_sym_COMMA; anon_sym_LBRACK];
   ACTIONS 11051 [anon_sym_LPAREN]; ACTIONS 11049 [aux_sym__literalString_token1;
   anon_sym_POUND]; ACTIONS 11051 [aux_sym__literalInt_token1];
   ACTIONS 11049 [aux_sym__literalInt_token2; aux_sym__literalInt_token3];
   ACTIONS 11051 [aux_sym__literalFloat_token1]; ACTIONS 11049 [aux_sym_ppUsesBlock_token1;
   aux_sym_ppUsesBlock_token2; aux_sym_ppUsesBlock_token3]; ACTIONS 11051 [sym_kAdd; sym_kSub];
   ACTIONS 11049 [sym_kAt; sym_kTrue; sym_kFalse]; ACTIONS 3 [sym__space];
   ACTIONS 5 [sym_ppDirective]; ACTIONS 3 [sym_comment]; ACTIONS 11049 [sym_ppFragmentExpr;
   sym__literalStringMultiline; sym_identifier; sym_kDefault; sym_kNodefault; sym_kDispId;
   sym_kGeneric; sym_kSpecialize; sym_kOperator; sym_kPublic; sym_kStatic; sym_kVirtual;
   sym_kAbstract; sym_kDynamic; sym_kOverride; sym_kOverload; sym_kReintroduce; sym_kStdcall;
   sym_kCdecl; sym_kCppdecl; sym_kPascal; sym_kRegister; sym_kMwpascal; sym_kMessage;
   sym_kDeprecated; sym_kExperimental; sym_kPlatform; sym_kUnimplemented; sym_kCvar; sym_kExport;
   sym_kFar; sym_kNear; sym_kSafecall; sym_kAssembler; sym_kNostackframe; sym_kInterrupt;
   sym_kNoreturn; sym_kIocheck; sym_kLocal; sym_kHardfloat; sym_kSoftfloat; sym_kMs_abi_default;
   sym_kMs_abi_cdecl; sym_kSaveregisters; sym_kSysv_abi_default; sym_kSysv_abi_cdecl;
   sym_kVectorcall; sym_kVarargs; sym_kWinapi; sym_kAlias; sym_kAsm; sym_kBegin; sym_kCase;
   sym_kClass; sym_kConst; sym_kConstructor; sym_kDestructor; sym_kExports; sym_kFor;
   sym_kFunction; sym_kGoto; sym_kIf; sym_kInherited; sym_kLabel; sym_kNil; sym_kNot;
   sym_kProcedure; sym_kProperty; sym_kRaise; sym_kRepeat; sym_kResourcestring; sym_kString;
   sym_kThreadvar; sym_kTry; sym_kType; sym_kUses; sym_kVar; sym_kWhile; sym_kWith]].

(** State 1367. *)
Definition ts_parse_table_1367 : parse_row :=
  [ACTIONS 10914 [anon_sym_SEMI; anon_sym_COMMA; anon_sym_LBRACK];
   ACTIONS 10916 [anon_sym_LPAREN]; ACTIONS 10914 [aux_sym__literalString_token1;
   anon_sym_POUND]; ACTIONS 10916 [aux_sym__literalInt_token1];
   ACTIONS 10914 [aux_sym__literalInt_token2; aux_sym__literalInt_token3];
   ACTIONS 10916 [aux_sym__literalFloat_token1]; ACTIONS 10914 [aux_sym_ppUsesBlock_token1;
   aux_sym_ppUsesBlock_token2; aux_sym_ppUsesBlock_token3]; ACTIONS 10916 [sym_kAdd; sym_kSub];
   ACTIONS 10914 [sym_kAt; sym_kTrue; sym_kFalse]; ACTIONS 3 [sym__space];
   ACTIONS 5 [sym_ppDirective]; ACTIONS 3 [sym_comment]; ACTIONS 10914 [sym_ppFragmentExpr;
   sym__literalStringMultiline; sym_identifier; sym_kDefault; sym_kNodefault; sym_kDispId;
   sym_kGeneric; sym_kSpecialize; sym_kOperator; sym_kPublic; sym_kStatic; sym_kVirtual;
   sym_kAbstract; sym_kDynamic; sym_kOverride; sym_kOverload; sym_kReintroduce; sym_kStdcall;
   sym_kCdecl; sym_kCppdecl; sym_kPascal; sym_kRegister; sym_kMwpascal; sym_kMessage;
   sym_kDeprecated; sym_kExperimental; sym_kPlatform; sym_kUnimplemented; sym_kCvar; sym_kExport;
   sym_kFar; sym_kNear; sym_kSafecall; sym_kAssembler; sym_kNostackframe; sym_kInterrupt;
   sym_kNoreturn; sym_kIocheck; sym_kLocal; sym_kHardfloat; sym_kSoftfloat; sym_kMs_abi_default;
   sym_kMs_abi_cdecl; sym_kSaveregisters; sym_kSysv_abi_default; sym_kSysv_abi_cdecl;
   sym_kVectorcall; sym_kVarargs; sym_kWinapi; sym_kAlias; sym_kAsm; sym_kBegin; sym_kCase;
   sym_kClass; sym_kConst; sym_kConstructor; sym_kDestructor; sym_kExports; sym_kFor;
   sym_kFunction; sym_kGoto; sym_kIf; sym_kInherited; sym_kLabel; sym_kNil; sym_kNot;
   sym_kProcedure; sym_kProperty; sym_kRaise; sym_kRepeat; sym_kResourcestring; sym_kString;
   sym_kThreadvar; sym_kTry; sym_kType; sym_kUses; sym_kVar; sym_kWhile; sym_kWith]].

(** State 1368. *)
Definition ts_parse_table_1368 : parse_row :=
  [ACTIONS 6280 [anon_sym_SEMI; anon_sym_COMMA; anon_sym_LBRACK]; ACTIONS 6282 [anon_sym_LPAREN];
   ACTIONS 6280 [aux_sym__literalString_token1; anon_sym_POUND];
   ACTIONS 6282 [aux_sym__literalInt_token1]; ACTIONS 6280 [aux_sym__literalInt_token2;
   aux_sym__literalInt_token3]; ACTIONS 6282 [aux_sym__literalFloat_token1];
   ACTIONS 6280 [aux_sym_ppUsesBlock_token1; aux_sym_ppUsesBlock_token2;
   aux_sym_ppUsesBlock_token3]; ACTIONS 6282 [sym_kAdd; sym_kSub]; ACTIONS 6280 [sym_kAt;
   sym_kTrue; sym_kFalse]; ACTIONS 3 [sym__space]; ACTIONS 5 [sym_ppDirective];
   ACTIONS 3 [sym_comment]; ACTIONS 6280 [sym_ppFragmentExpr; sym__literalStringMultiline;
   sym_identifier; sym_kDefault; sym_kNodefault; sym_kDispId; sym_kGeneric; sym_kSpecialize;
   sym_kOperator; sym_kPublic; sym_kStatic; sym_kVirtual; sym_kAbstract; sym_kDynamic;
   sym_kOverride; sym_kOverload; sym_kReintroduce; sym_kStdcall; sym_kCdecl; sym_kCppdecl;
   sym_kPascal; sym_kRegister; sym_kMwpascal; sym_kMessage; sym_kDeprecated; sym_kExperimental;
   sym_kPlatform; sym_kUnimplemented; sym_kCvar; sym_kExport; sym_kFar; sym_kNear; sym_kSafecall;
   sym_kAssembler; sym_kNostackframe; sym_kInterrupt; sym_kNoreturn; sym_kIocheck; sym_kLocal;
   sym_kHardfloat; sym_kSoftfloat; sym_kMs_abi_default; sym_kMs_abi_cdecl; sym_kSaveregisters;
   sym_kSysv_abi_default; sym_kSysv_abi_cdecl; sym_kVectorcall; sym_kVarargs; sym_kWinapi;
   sym_kAlias; sym_kAsm; sym_kBegin; sym_kCase; sym_kClass; sym_kConst; sym_kConstructor;
   sym_kDestructor; sym_kExports; sym_kFor; sym_kFunction; sym_kGoto; sym_kIf; sym_kInherited;
   sym_kLabel; sym_kNil; sym_kNot; sym_kProcedure; sym_kProperty; sym_kRaise; sym_kRepeat;
   sym_kResourcestring; sym_kString; sym_kThreadvar; sym_kTry; sym_kType; sym_kUses; sym_kVar;
   sym_kWhile; sym_kWith]].

(** State 1369. *)
Definition ts_parse_table_1369 : parse_row :=
  [ACTIONS 345 [anon_sym_SEMI; anon_sym_COMMA]; ACTIONS 11053 [anon_sym_LBRACK];
   ACTIONS 350 [anon_sym_LPAREN]; ACTIONS 345 [aux_sym__literalString_token1; anon_sym_POUND];
   ACTIONS 350 [aux_sym__literalInt_token1]; ACTIONS 345 [aux_sym__literalInt_token2;
   aux_sym__literalInt_token3]; ACTIONS 350 [aux_sym__literalFloat_token1];
   ACTIONS 11053 [aux_sym_ppUsesBlock_token1]; ACTIONS 345 [aux_sym_ppUsesBlock_token2;
   aux_sym_ppUsesBlock_token3]; ACTIONS 350 [sym_kAdd; sym_kSub]; ACTIONS 345 [sym_kAt;
   sym_kTrue; sym_kFalse]; ACTIONS 3 [sym__space]; ACTIONS 5 [sym_ppDirective];
   ACTIONS 3 [sym_comment]; ACTIONS 345 [sym_ppFragmentExpr; sym__literalStringMultiline;
   sym_identifier; sym_kDefault; sym_kNodefault; sym_kDispId]; ACTIONS 11053 [sym_kGeneric];
   ACTIONS 345 [sym_kSpecialize]; ACTIONS 11053 [sym_kOperator]; ACTIONS 345 [sym_kPublic;
   sym_kStatic; sym_kVirtual; sym_kAbstract; sym_kDynamic; sym_kOverride; sym_kOverload;
   sym_kReintroduce; sym_kStdcall; sym_kCdecl; sym_kCppdecl; sym_kPascal; sym_kRegister;
   sym_kMwpascal; sym_kMessage; sym_kDeprecated; sym_kExperimental; sym_kPlatform;
   sym_kUnimplemented; sym_kCvar; sym_kExport; sym_kFar; sym_kNear; sym_kSafecall;
   sym_kAssembler; sym_kNostackframe; sym_kInterrupt; sym_kNoreturn; sym_kIocheck; sym_kLocal;
   sym_kHardfloat; sym_kSoftfloat; sym_kMs_abi_default; sym_kMs_abi_cdecl; sym_kSaveregisters;
   sym_kSysv_abi_default; sym_kSysv_abi_cdecl; sym_kVectorcall; sym_kVarargs; sym_kWinapi;
   sym_kAlias]; ACTIONS 11053 [sym_kAsm; sym_kBegin]; ACTIONS 345 [sym_kCase];
   ACTIONS 11053 [sym_kClass; sym_kConst; sym_kConstructor; sym_kDestructor; sym_kExports];
   ACTIONS 345 [sym_kFor]; ACTIONS 11053 [sym_kFunction]; ACTIONS 345 [sym_kGoto; sym_kIf;
   sym_kInherited]; ACTIONS 11053 [sym_kLabel]; ACTIONS 345 [sym_kNil; sym_kNot];
   ACTIONS 11053 [sym_kProcedure]; ACTIONS 345 [sym_kProperty; sym_kRaise; sym_kRepeat];
   ACTIONS 11053 [sym_kResourcestring]; ACTIONS 345 [sym_kString];
   ACTIONS 11053 [sym_kThreadvar]; ACTIONS 345 [sym_kTry]; ACTIONS 11053 [sym_kType; sym_kUses;
   sym_kVar]; ACTIONS 345 [sym_kWhile; sym_kWith]].

(** State 1370. *)
Definition ts_parse_table_1370 : parse_row :=
  [ACTIONS 10802 [anon_sym_SEMI; anon_sym_COMMA; anon_sym_LBRACK];
   ACTIONS 10804 [anon_sym_LPAREN]; ACTIONS 10802 [aux_sym__literalString_token1;
   anon_sym_POUND]; ACTIONS 10804 [aux_sym__literalInt_token1];
   ACTIONS 10802 [aux_sym__literalInt_token2; aux_sym__literalInt_token3];
   ACTIONS 10804 [aux_sym__literalFloat_token1]; ACTIONS 10802 [aux_sym_ppUsesBlock_token1;
   aux_sym_ppUsesBlock_token2; aux_sym_ppUsesBlock_token3]; ACTIONS 10804 [sym_kAdd; sym_kSub];
   ACTIONS 10802 [sym_kAt; sym_kTrue; sym_kFalse]; ACTIONS 3 [sym__space];
   ACTIONS 5 [sym_ppDirective]; ACTIONS 3 [sym_comment]; ACTIONS 10802 [sym_ppFragmentExpr;
   sym__literalStringMultiline; sym_identifier; sym_kDefault; sym_kNodefault; sym_kDispId;
   sym_kGeneric; sym_kSpecialize; sym_kOperator; sym_kPublic; sym_kStatic; sym_kVirtual;
   sym_kAbstract; sym_kDynamic; sym_kOverride; sym_kOverload; sym_kReintroduce; sym_kStdcall;
   sym_kCdecl; sym_kCppdecl; sym_kPascal; sym_kRegister; sym_kMwpascal; sym_kMessage;
   sym_kDeprecated; sym_kExperimental; sym_kPlatform; sym_kUnimplemented; sym_kCvar; sym_kExport;
   sym_kFar; sym_kNear; sym_kSafecall; sym_kAssembler; sym_kNostackframe; sym_kInterrupt;
   sym_kNoreturn; sym_kIocheck; sym_kLocal; sym_kHardfloat; sym_kSoftfloat; sym_kMs_abi_default;
   sym_kMs_abi_cdecl; sym_kSaveregisters; sym_kSysv_abi_default; sym_kSysv_abi_cdecl;
   sym_kVectorcall; sym_kVarargs; sym_kWinapi; sym_kAlias; sym_kAsm; sym_kBegin; sym_kCase;
   sym_kClass; sym_kConst; sym_kConstructor; sym_kDestructor; sym_kExports; sym_kFor;
   sym_kFunction; sym_kGoto; sym_kIf; sym_kInherited; sym_kLabel; sym_kNil; sym_kNot;
   sym_kProcedure; sym_kProperty; sym_kRaise; sym_kRepeat; sym_kResourcestring; sym_kString;
   sym_kThreadvar; sym_kTry; sym_kType; sym_kUses; sym_kVar; sym_kWhile; sym_kWith]].

(** State 1371. *)
Definition ts_parse_table_1371 : parse_row :=
  [ACTIONS 10766 [anon_sym_SEMI; anon_sym_COMMA; anon_sym_LBRACK];
   ACTIONS 10768 [anon_sym_LPAREN]; ACTIONS 10766 [aux_sym__literalString_token1;
   anon_sym_POUND]; ACTIONS 10768 [aux_sym__literalInt_token1];
   ACTIONS 10766 [aux_sym__literalInt_token2; aux_sym__literalInt_token3];
   ACTIONS 10768 [aux_sym__literalFloat_token1]; ACTIONS 10766 [aux_sym_ppUsesBlock_token1;
   aux_sym_ppUsesBlock_token2; aux_sym_ppUsesBlock_token3]; ACTIONS 10768 [sym_kAdd; sym_kSub];
   ACTIONS 10766 [sym_kAt; sym_kTrue; sym_kFalse]; ACTIONS 3 [sym__space];
   ACTIONS 5 [sym_ppDirective]; ACTIONS 3 [sym_comment]; ACTIONS 10766 [sym_ppFragmentExpr;
   sym__literalStringMultiline; sym_identifier; sym_kDefault; sym_kNodefault; sym_kDispId;
   sym_kGeneric; sym_kSpecialize; sym_kOperator; sym_kPublic; sym_kStatic; sym_kVirtual;
   sym_kAbstract; sym_kDynamic; sym_kOverride; sym_kOverload; sym_kReintroduce; sym_kStdcall;
   sym_kCdecl; sym_kCppdecl; sym_kPascal; sym_kRegister; sym_kMwpascal; sym_kMessage;
   sym_kDeprecated; sym_kExperimental; sym_kPlatform; sym_kUnimplemented; sym_kCvar; sym_kExport;
   sym_kFar; sym_kNear; sym_kSafecall; sym_kAssembler; sym_kNostackframe; sym_kInterrupt;
   sym_kNoreturn; sym_kIocheck; sym_kLocal; sym_kHardfloat; sym_kSoftfloat; sym_kMs_abi_default;
   sym_kMs_abi_cdecl; sym_kSaveregisters; sym_kSysv_abi_default; sym_kSysv_abi_cdecl;
   sym_kVectorcall; sym_kVarargs; sym_kWinapi; sym_kAlias; sym_kAsm; sym_kBegin; sym_kCase;
   sym_kClass; sym_kConst; sym_kConstructor; sym_kDestructor; sym_kExports; sym_kFor;
   sym_kFunction; sym_kGoto; sym_kIf; sym_kInherited; sym_kLabel; sym_kNil; sym_kNot;
   sym_kProcedure; sym_kProperty; sym_kRaise; sym_kRepeat; sym_kResourcestring; sym_kString;
   sym_kThreadvar; sym_kTry; sym_kType; sym_kUses; sym_kVar; sym_kWhile; sym_kWith]].

(** State 1372. *)
Definition ts_parse_table_1372 : parse_row :=
  [ACTIONS 10846 [anon_sym_SEMI; anon_sym_COMMA; anon_sym_LBRACK];
   ACTIONS 10848 [anon_sym_LPAREN]; ACTIONS 10846 [aux_sym__literalString_token1;
   anon_sym_POUND]; ACTIONS 10848 [aux_sym__literalInt_token1];
   ACTIONS 10846 [aux_sym__literalInt_token2; aux_sym__literalInt_token3];
   ACTIONS 10848 [aux_sym__literalFloat_token1]; ACTIONS 10846 [aux_sym_ppUsesBlock_token1;
   aux_sym_ppUsesBlock_token2; aux_sym_ppUsesBlock_token3]; ACTIONS 10848 [sym_kAdd; sym_kSub];
   ACTIONS 10846 [sym_kAt; sym_kTrue; sym_kFalse]; ACTIONS 3 [sym__space];
   ACTIONS 5 [sym_ppDirective]; ACTIONS 3 [sym_comment]; ACTIONS 10846 [sym_ppFragmentExpr;
   sym__literalStringMultiline; sym_identifier; sym_kDefault; sym_kNodefault; sym_kDispId;
   sym_kGeneric; sym_kSpecialize; sym_kOperator; sym_kPublic; sym_kStatic; sym_kVirtual;
   sym_kAbstract; sym_kDynamic; sym_kOverride; sym_kOverload; sym_kReintroduce; sym_kStdcall;
   sym_kCdecl; sym_kCppdecl; sym_kPascal; sym_kRegister; sym_kMwpascal; sym_kMessage;
   sym_kDeprecated; sym_kExperimental; sym_kPlatform; sym_kUnimplemented; sym_kCvar; sym_kExport;
   sym_kFar; sym_kNear; sym_kSafecall; sym_kAssembler; sym_kNostackframe; sym_kInterrupt;
   sym_kNoreturn; sym_kIocheck; sym_kLocal; sym_kHardfloat; sym_kSoftfloat; sym_kMs_abi_default;
   sym_kMs_abi_cdecl; sym_kSaveregisters; sym_kSysv_abi_default; sym_kSysv_abi_cdecl;
   sym_kVectorcall; sym_kVarargs; sym_kWinapi; sym_kAlias; sym_kAsm; sym_kBegin; sym_kCase;
   sym_kClass; sym_kConst; sym_kConstructor; sym_kDestructor; sym_kExports; sym_kFor;
   sym_kFunction; sym_kGoto; sym_kIf; sym_kInherited; sym_kLabel; sym_kNil; sym_kNot;
   sym_kProcedure; sym_kProperty; sym_kRaise; sym_kRepeat; sym_kResourcestring; sym_kString;
   sym_kThreadvar; sym_kTry; sym_kType; sym_kUses; sym_kVar; sym_kWhile; sym_kWith]].

(** State 1373. *)
Definition ts_parse_table_1373 : parse_row :=
  [ACTIONS 10826 [anon_sym_SEMI; anon_sym_COMMA; anon_sym_LBRACK];
   ACTIONS 10828 [anon_sym_LPAREN]; ACTIONS 10826 [aux_sym__literalString_token1;
   anon_sym_POUND]; ACTIONS 10828 [aux_sym__literalInt_token1];
   ACTIONS 10826 [aux_sym__literalInt_token2; aux_sym__literalInt_token3];
   ACTIONS 10828 [aux_sym__literalFloat_token1]; ACTIONS 10826 [aux_sym_ppUsesBlock_token1;
   aux_sym_ppUsesBlock_token2; aux_sym_ppUsesBlock_token3]; ACTIONS 10828 [sym_kAdd; sym_kSub];
   ACTIONS 10826 [sym_kAt; sym_kTrue; sym_kFalse]; ACTIONS 3 [sym__space];
   ACTIONS 5 [sym_ppDirective]; ACTIONS 3 [sym_comment]; ACTIONS 10826 [sym_ppFragmentExpr;
   sym__literalStringMultiline; sym_identifier; sym_kDefault; sym_kNodefault; sym_kDispId;
   sym_kGeneric; sym_kSpecialize; sym_kOperator; sym_kPublic; sym_kStatic; sym_kVirtual;
   sym_kAbstract; sym_kDynamic; sym_kOverride; sym_kOverload; sym_kReintroduce; sym_kStdcall;
   sym_kCdecl; sym_kCppdecl; sym_kPascal; sym_kRegister; sym_kMwpascal; sym_kMessage;
   sym_kDeprecated; sym_kExperimental; sym_kPlatform; sym_kUnimplemented; sym_kCvar; sym_kExport;
   sym_kFar; sym_kNear; sym_kSafecall; sym_kAssembler; sym_kNostackframe; sym_kInterrupt;
   sym_kNoreturn; sym_kIocheck; sym_kLocal; sym_kHardfloat; sym_kSoftfloat; sym_kMs_abi_default;
   sym_kMs_abi_cdecl; sym_kSaveregisters; sym_kSysv_abi_default; sym_kSysv_abi_cdecl;
   sym_kVectorcall; sym_kVarargs; sym_kWinapi; sym_kAlias; sym_kAsm; sym_kBegin; sym_kCase;
   sym_kClass; sym_kConst; sym_kConstructor; sym_kDestructor; sym_kExports; sym_kFor;
   sym_kFunction; sym_kGoto; sym_kIf; sym_kInherited; sym_kLabel; sym_kNil; sym_kNot;
   sym_kProcedure; sym_kProperty; sym_kRaise; sym_kRepeat; sym_kResourcestring; sym_kString;
   sym_kThreadvar; sym_kTry; sym_kType; sym_kUses; sym_kVar; sym_kWhile; sym_kWith]].

(** State 1374. *)
Definition ts_parse_table_1374 : parse_row :=
  [ACTIONS 10902 [anon_sym_SEMI; anon_sym_COMMA; anon_sym_LBRACK];
   ACTIONS 10904 [anon_sym_LPAREN]; ACTIONS 10902 [aux_sym__literalString_token1;
   anon_sym_POUND]; ACTIONS 10904 [aux_sym__literalInt_token1];
   ACTIONS 10902 [aux_sym__literalInt_token2; aux_sym__literalInt_token3];
   ACTIONS 10904 [aux_sym__literalFloat_token1]; ACTIONS 10902 [aux_sym_ppUsesBlock_token1;
   aux_sym_ppUsesBlock_token2; aux_sym_ppUsesBlock_token3]; ACTIONS 10904 [sym_kAdd; sym_kSub];
   ACTIONS 10902 [sym_kAt; sym_kTrue; sym_kFalse]; ACTIONS 3 [sym__space];
   ACTIONS 5 [sym_ppDirective]; ACTIONS 3 [sym_comment]; ACTIONS 10902 [sym_ppFragmentExpr;
   sym__literalStringMultiline; sym_identifier; sym_kDefault; sym_kNodefault; sym_kDispId;
   sym_kGeneric; sym_kSpecialize; sym_kOperator; sym_kPublic; sym_kStatic; sym_kVirtual;
   sym_kAbstract; sym_kDynamic; sym_kOverride; sym_kOverload; sym_kReintroduce; sym_kStdcall;
   sym_kCdecl; sym_kCppdecl; sym_kPascal; sym_kRegister; sym_kMwpascal; sym_kMessage;
   sym_kDeprecated; sym_kExperimental; sym_kPlatform; sym_kUnimplemented; sym_kCvar; sym_kExport;
   sym_kFar; sym_kNear; sym_kSafecall; sym_kAssembler; sym_kNostackframe; sym_kInterrupt;
   sym_kNoreturn; sym_kIocheck; sym_kLocal; sym_kHardfloat; sym_kSoftfloat; sym_kMs_abi_default;
   sym_kMs_abi_cdecl; sym_kSaveregisters; sym_kSysv_abi_default; sym_kSysv_abi_cdecl;
   sym_kVectorcall; sym_kVarargs; sym_kWinapi; sym_kAlias; sym_kAsm; sym_kBegin; sym_kCase;
   sym_kClass; sym_kConst; sym_kConstructor; sym_kDestructor; sym_kExports; sym_kFor;
   sym_kFunction; sym_kGoto; sym_kIf; sym_kInherited; sym_kLabel; sym_kNil; sym_kNot;
   sym_kProcedure; sym_kProperty; sym_kRaise; sym_kRepeat; sym_kResourcestring; sym_kString;
   sym_kThreadvar; sym_kTry; sym_kType; sym_kUses; sym_kVar; sym_kWhile; sym_kWith]].

(** State 1375. *)
Definition ts_parse_table_1375 : parse_row :=
  [ACTIONS 10878 [anon_sym_SEMI; anon_sym_COMMA; anon_sym_LBRACK];
   ACTIONS 10880 [anon_sym_LPAREN]; ACTIONS 10878 [aux_sym__literalString_token1;
   anon_sym_POUND]; ACTIONS 10880 [aux_sym__literalInt_token1];
   ACTIONS 10878 [aux_sym__literalInt_token2; aux_sym__literalInt_token3];
   ACTIONS 10880 [aux_sym__literalFloat_token1]; ACTIONS 10878 [aux_sym_ppUsesBlock_token1;
   aux_sym_ppUsesBlock_token2; aux_sym_ppUsesBlock_token3]; ACTIONS 10880 [sym_kAdd; sym_kSub];
   ACTIONS 10878 [sym_kAt; sym_kTrue; sym_kFalse]; ACTIONS 3 [sym__space];
   ACTIONS 5 [sym_ppDirective]; ACTIONS 3 [sym_comment]; ACTIONS 10878 [sym_ppFragmentExpr;
   sym__literalStringMultiline; sym_identifier; sym_kDefault; sym_kNodefault; sym_kDispId;
   sym_kGeneric; sym_kSpecialize; sym_kOperator; sym_kPublic; sym_kStatic; sym_kVirtual;
   sym_kAbstract; sym_kDynamic; sym_kOverride; sym_kOverload; sym_kReintroduce; sym_kStdcall;
   sym_kCdecl; sym_kCppdecl; sym_kPascal; sym_kRegister; sym_kMwpascal; sym_kMessage;
   sym_kDeprecated; sym_kExperimental; sym_kPlatform; sym_kUnimplemented; sym_kCvar; sym_kExport;
   sym_kFar; sym_kNear; sym_kSafecall; sym_kAssembler; sym_kNostackframe; sym_kInterrupt;
   sym_kNoreturn; sym_kIocheck; sym_kLocal; sym_kHardfloat; sym_kSoftfloat; sym_kMs_abi_default;
   sym_kMs_abi_cdecl; sym_kSaveregisters; sym_kSysv_abi_default; sym_kSysv_abi_cdecl;
   sym_kVectorcall; sym_kVarargs; sym_kWinapi; sym_kAlias; sym_kAsm; sym_kBegin; sym_kCase;
   sym_kClass; sym_kConst; sym_kConstructor; sym_kDestructor; sym_kExports; sym_kFor;
   sym_kFunction; sym_kGoto; sym_kIf; sym_kInherited; sym_kLabel; sym_kNil; sym_kNot;
   sym_kProcedure; sym_kProperty; sym_kRaise; sym_kRepeat; sym_kResourcestring; sym_kString;
   sym_kThreadvar; sym_kTry; sym_kType; sym_kUses; sym_kVar; sym_kWhile; sym_kWith]].

(** State 1376. *)
Definition ts_parse_table_1376 : parse_row :=
  [ACTIONS 10710 [anon_sym_SEMI; anon_sym_COMMA; anon_sym_LBRACK];
   ACTIONS 10712 [anon_sym_LPAREN]; ACTIONS 10710 [aux_sym__literalString_token1;
   anon_sym_POUND]; ACTIONS 10712 [aux_sym__literalInt_token1];
   ACTIONS 10710 [aux_sym__literalInt_token2; aux_sym__literalInt_token3];
   ACTIONS 10712 [aux_sym__literalFloat_token1]; ACTIONS 10710 [aux_sym_ppUsesBlock_token1;
   aux_sym_ppUsesBlock_token2; aux_sym_ppUsesBlock_token3]; ACTIONS 10712 [sym_kAdd; sym_kSub];
   ACTIONS 10710 [sym_kAt; sym_kTrue; sym_kFalse]; ACTIONS 3 [sym__space];
   ACTIONS 5 [sym_ppDirective]; ACTIONS 3 [sym_comment]; ACTIONS 10710 [sym_ppFragmentExpr;
   sym__literalStringMultiline; sym_identifier; sym_kDefault; sym_kNodefault; sym_kDispId;
   sym_kGeneric; sym_kSpecialize; sym_kOperator; sym_kPublic; sym_kStatic; sym_kVirtual;
   sym_kAbstract; sym_kDynamic; sym_kOverride; sym_kOverload; sym_kReintroduce; sym_kStdcall;
   sym_kCdecl; sym_kCppdecl; sym_kPascal; sym_kRegister; sym_kMwpascal; sym_kMessage;
   sym_kDeprecated; sym_kExperimental; sym_kPlatform; sym_kUnimplemented; sym_kCvar; sym_kExport;
   sym_kFar; sym_kNear; sym_kSafecall; sym_kAssembler; sym_kNostackframe; sym_kInterrupt;
   sym_kNoreturn; sym_kIocheck; sym_kLocal; sym_kHardfloat; sym_kSoftfloat; sym_kMs_abi_default;
   sym_kMs_abi_cdecl; sym_kSaveregisters; sym_kSysv_abi_default; sym_kSysv_abi_cdecl;
   sym_kVectorcall; sym_kVarargs; sym_kWinapi; sym_kAlias; sym_kAsm; sym_kBegin; sym_kCase;
   sym_kClass; sym_kConst; sym_kConstructor; sym_kDestructor; sym_kExports; sym_kFor;
   sym_kFunction; sym_kGoto; sym_kIf; sym_kInherited; sym_kLabel; sym_kNil; sym_kNot;
   sym_kProcedure; sym_kProperty; sym_kRaise; sym_kRepeat; sym_kResourcestring; sym_kString;
   sym_kThreadvar; sym_kTry; sym_kType; sym_kUses; sym_kVar; sym_kWhile; sym_kWith]].

(** State 1377. *)
Definition ts_parse_table_1377 : parse_row :=
  [ACTIONS 10732 [anon_sym_SEMI; anon_sym_COMMA; anon_sym_LBRACK];
   ACTIONS 10734 [anon_sym_LPAREN]; ACTIONS 10732 [aux_sym__literalString_token1;
   anon_sym_POUND]; ACTIONS 10734 [aux_sym__literalInt_token1];
   ACTIONS 10732 [aux_sym__literalInt_token2; aux_sym__literalInt_token3];
   ACTIONS 10734 [aux_sym__literalFloat_token1]; ACTIONS 10732 [aux_sym_ppUsesBlock_token1;
   aux_sym_ppUsesBlock_token2; aux_sym_ppUsesBlock_token3]; ACTIONS 10734 [sym_kAdd; sym_kSub];
   ACTIONS 10732 [sym_kAt; sym_kTrue; sym_kFalse]; ACTIONS 3 [sym__space];
   ACTIONS 5 [sym_ppDirective]; ACTIONS 3 [sym_comment]; ACTIONS 10732 [sym_ppFragmentExpr;
   sym__literalStringMultiline; sym_identifier; sym_kDefault; sym_kNodefault; sym_kDispId;
   sym_kGeneric; sym_kSpecialize; sym_kOperator; sym_kPublic; sym_kStatic; sym_kVirtual;
   sym_kAbstract; sym_kDynamic; sym_kOverride; sym_kOverload; sym_kReintroduce; sym_kStdcall;
   sym_kCdecl; sym_kCppdecl; sym_kPascal; sym_kRegister; sym_kMwpascal; sym_kMessage;
   sym_kDeprecated; sym_kExperimental; sym_kPlatform; sym_kUnimplemented; sym_kCvar; sym_kExport;
   sym_kFar; sym_kNear; sym_kSafecall; sym_kAssembler; sym_kNostackframe; sym_kInterrupt;
   sym_kNoreturn; sym_kIocheck; sym_kLocal; sym_kHardfloat; sym_kSoftfloat; sym_kMs_abi_default;
   sym_kMs_abi_cdecl; sym_kSaveregisters; sym_kSysv_abi_default; sym_kSysv_abi_cdecl;
   sym_kVectorcall; sym_kVarargs; sym_kWinapi; sym_kAlias; sym_kAsm; sym_kBegin; sym_kCase;
   sym_kClass; sym_kConst; sym_kConstructor; sym_kDestructor; sym_kExports; sym_kFor;
   sym_kFunction; sym_kGoto; sym_kIf; sym_kInherited; sym_kLabel; sym_kNil; sym_kNot;
   sym_kProcedure; sym_kProperty; sym_kRaise; sym_kRepeat; sym_kResourcestring; sym_kString;
   sym_kThreadvar; sym_kTry; sym_kType; sym_kUses; sym_kVar; sym_kWhile; sym_kWith]].

(** State 1378. *)
Definition ts_parse_table_1378 : parse_row :=
  [ACTIONS 9810 [anon_sym_SEMI; anon_sym_COMMA; anon_sym_LBRACK]; ACTIONS 9812 [anon_sym_LPAREN];
   ACTIONS 9810 [aux_sym__literalString_token1; anon_sym_POUND];
   ACTIONS 9812 [aux_sym__literalInt_token1]; ACTIONS 9810 [aux_sym__literalInt_token2;
   aux_sym__literalInt_token3]; ACTIONS 9812 [aux_sym__literalFloat_token1];
   ACTIONS 9810 [aux_sym_ppUsesBlock_token1; aux_sym_ppUsesBlock_token2;
   aux_sym_ppUsesBlock_token3]; ACTIONS 9812 [sym_kAdd; sym_kSub]; ACTIONS 9810 [sym_kAt;
   sym_kTrue; sym_kFalse]; ACTIONS 3 [sym__space]; ACTIONS 5 [sym_ppDirective];
   ACTIONS 3 [sym_comment]; ACTIONS 9810 [sym_ppFragmentExpr; sym__literalStringMultiline;
   sym_identifier; sym_kDefault; sym_kNodefault; sym_kDispId; sym_kGeneric; sym_kSpecialize;
   sym_kOperator; sym_kPublic; sym_kStatic; sym_kVirtual; sym_kAbstract; sym_kDynamic;
   sym_kOverride; sym_kOverload; sym_kReintroduce; sym_kStdcall; sym_kCdecl; sym_kCppdecl;
   sym_kPascal; sym_kRegister; sym_kMwpascal; sym_kMessage; sym_kDeprecated; sym_kExperimental;
   sym_kPlatform; sym_kUnimplemented; sym_kCvar; sym_kExport; sym_kFar; sym_kNear; sym_kSafecall;
   sym_kAssembler; sym_kNostackframe; sym_kInterrupt; sym_kNoreturn; sym_kIocheck; sym_kLocal;
   sym_kHardfloat; sym_kSoftfloat; sym_kMs_abi_default; sym_kMs_abi_cdecl; sym_kSaveregisters;
   sym_kSysv_abi_default; sym_kSysv_abi_cdecl; sym_kVectorcall; sym_kVarargs; sym_kWinapi;
   sym_kAlias; sym_kAsm; sym_kBegin; sym_kCase; sym_kClass; sym_kConst; sym_kConstructor;
   sym_kDestructor; sym_kExports; sym_kFor; sym_kFunction; sym_kGoto; sym_kIf; sym_kInherited;
   sym_kLabel; sym_kNil; sym_kNot; sym_kProcedure; sym_kProperty; sym_kRaise; sym_kRepeat;
   sym_kResourcestring; sym_kString; sym_kThreadvar; sym_kTry; sym_kType; sym_kUses; sym_kVar;
   sym_kWhile; sym_kWith]].

(** State 1379. *)
Definition ts_parse_table_1379 : parse_row :=
  [ACTIONS 10866 [anon_sym_SEMI; anon_sym_COMMA; anon_sym_LBRACK];
   ACTIONS 10868 [anon_sym_LPAREN]; ACTIONS 10866 [aux_sym__literalString_token1;
   anon_sym_POUND]; ACTIONS 10868 [aux_sym__literalInt_token1];
   ACTIONS 10866 [aux_sym__literalInt_token2; aux_sym__literalInt_token3];
   ACTIONS 10868 [aux_sym__literalFloat_token1]; ACTIONS 10866 [aux_sym_ppUsesBlock_token1;
   aux_sym_ppUsesBlock_token2; aux_sym_ppUsesBlock_token3]; ACTIONS 10868 [sym_kAdd; sym_kSub];
   ACTIONS 10866 [sym_kAt; sym_kTrue; sym_kFalse]; ACTIONS 3 [sym__space];
   ACTIONS 5 [sym_ppDirective]; ACTIONS 3 [sym_comment]; ACTIONS 10866 [sym_ppFragmentExpr;
   sym__literalStringMultiline; sym_identifier; sym_kDefault; sym_kNodefault; sym_kDispId;
   sym_kGeneric; sym_kSpecialize; sym_kOperator; sym_kPublic; sym_kStatic; sym_kVirtual;
   sym_kAbstract; sym_kDynamic; sym_kOverride; sym_kOverload; sym_kReintroduce; sym_kStdcall;
   sym_kCdecl; sym_kCppdecl; sym_kPascal; sym_kRegister; sym_kMwpascal; sym_kMessage;
   sym_kDeprecated; sym_kExperimental; sym_kPlatform; sym_kUnimplemented; sym_kCvar; sym_kExport;
   sym_kFar; sym_kNear; sym_kSafecall; sym_kAssembler; sym_kNostackframe; sym_kInterrupt;
   sym_kNoreturn; sym_kIocheck; sym_kLocal; sym_kHardfloat; sym_kSoftfloat; sym_kMs_abi_default;
   sym_kMs_abi_cdecl; sym_kSaveregisters; sym_kSysv_abi_default; sym_kSysv_abi_cdecl;
   sym_kVectorcall; sym_kVarargs; sym_kWinapi; sym_kAlias; sym_kAsm; sym_kBegin; sym_kCase;
   sym_kClass; sym_kConst; sym_kConstructor; sym_kDestructor; sym_kExports; sym_kFor;
   sym_kFunction; sym_kGoto; sym_kIf; sym_kInherited; sym_kLabel; sym_kNil; sym_kNot;
   sym_kProcedure; sym_kProperty; sym_kRaise; sym_kRepeat; sym_kResourcestring; sym_kString;
   sym_kThreadvar; sym_kTry; sym_kType; sym_kUses; sym_kVar; sym_kWhile; sym_kWith]].

(** State 1380. *)
Definition ts_parse_table_1380 : parse_row :=
  [STATE 5914 [sym_if]; STATE 1390 [sym_ifElse; sym_while; sym_repeat; sym_for; sym_foreach;
   sym_try; sym_case; sym_block; sym_asm; sym_with; sym_raise; sym_statement; sym_goto;
   sym__statement]; STATE 14947 [sym_assignment]; STATE 11829 [sym_varAssignDef];
   STATE 14947 [sym_varDef; sym_constDef]; STATE 1390 [sym_label]; STATE 8450 [sym__expr;
   sym_exprConditional]; STATE 7765 [sym__ref; sym_lambda; sym_inherited; sym_exprDot;
   sym_exprDeref; sym_exprAs; sym_exprTpl; sym_exprSubscript; sym_exprCall];
   STATE 8450 [sym_exprBinary; sym_exprUnary]; STATE 7765 [sym_exprParens; sym_exprBrackets;
   sym__literal; sym_literalString]; STATE 6994 [sym__literalString; sym_literalChar];
   STATE 7765 [sym_literalNumber]; STATE 7888 [sym__literalInt; sym__literalFloat];
   STATE 1384 [sym__ppIf]; STATE 1392 [sym__ppElse]; STATE 6227 [sym__ppEndIf];
   STATE 1390 [sym__ppStatementBlock]; STATE 6994 [aux_sym_literalString_repeat1];
   STATE 1390 [aux_sym__ppStatementBlock_repeat1];
   STATE 11799 [aux_sym__ppStatementBlock_repeat2]; ACTIONS 11056 [anon_sym_SEMI];
   ACTIONS 11058 [anon_sym_COMMA]; ACTIONS 11060 [anon_sym_LBRACK]; ACTIONS 47 [anon_sym_LPAREN];
   ACTIONS 49 [aux_sym__literalString_token1]; ACTIONS 51 [anon_sym_POUND];
   ACTIONS 53 [aux_sym__literalInt_token1]; ACTIONS 55 [aux_sym__literalInt_token2;
   aux_sym__literalInt_token3]; ACTIONS 53 [aux_sym__literalFloat_token1];
   ACTIONS 411 [aux_sym_ppUsesBlock_token1]; ACTIONS 11062 [aux_sym_ppUsesBlock_token2];
   ACTIONS 11064 [aux_sym_ppUsesBlock_token3]; ACTIONS 61 [sym_kAdd; sym_kSub];
   ACTIONS 63 [sym_kAt]; ACTIONS 65 [sym_kTrue; sym_kFalse]; ACTIONS 11066 [sym_labelNumber];
   ACTIONS 3 [sym__space]; ACTIONS 5 [sym_ppDirective]; ACTIONS 3 [sym_comment];
   ACTIONS 65 [sym_ppFragmentExpr]; ACTIONS 11058 [sym_ppFragmentStmt];
   ACTIONS 49 [sym__literalStringMultiline]; ACTIONS 11068 [sym_identifier];
   ACTIONS 73 [sym_kSpecialize]; ACTIONS 11070 [sym_kAsm]; ACTIONS 11072 [sym_kBegin];
   ACTIONS 11074 [sym_kCase]; ACTIONS 11076 [sym_kConst]; ACTIONS 11078 [sym_kFor];
   ACTIONS 11080 [sym_kFunction]; ACTIONS 11082 [sym_kGoto]; ACTIONS 11084 [sym_kIf];
   ACTIONS 105 [sym_kInherited]; ACTIONS 65 [sym_kNil]; ACTIONS 63 [sym_kNot];
   ACTIONS 11080 [sym_kProcedure]; ACTIONS 11086 [sym_kRaise]; ACTIONS 11088 [sym_kRepeat];
   ACTIONS 117 [sym_kString]; ACTIONS 11090 [sym_kTry]; ACTIONS 11092 [sym_kVar];
   ACTIONS 11094 [sym_kWhile]; ACTIONS 11096 [sym_kWith]].

(** State 1381. *)
Definition ts_parse_table_1381 : parse_row :=
  [STATE 5914 [sym_if]; STATE 1388 [sym_ifElse; sym_while; sym_repeat; sym_for; sym_foreach;
   sym_try; sym_case; sym_block; sym_asm; sym_with; sym_raise; sym_statement; sym_goto;
   sym__statement]; STATE 14947 [sym_assignment]; STATE 11829 [sym_varAssignDef];
   STATE 14947 [sym_varDef; sym_constDef]; STATE 1388 [sym_label]; STATE 8450 [sym__expr;
   sym_exprConditional]; STATE 7765 [sym__ref; sym_lambda; sym_inherited; sym_exprDot;
   sym_exprDeref; sym_exprAs; sym_exprTpl; sym_exprSubscript; sym_exprCall];
   STATE 8450 [sym_exprBinary; sym_exprUnary]; STATE 7765 [sym_exprParens; sym_exprBrackets;
   sym__literal; sym_literalString]; STATE 6994 [sym__literalString; sym_literalChar];
   STATE 7765 [sym_literalNumber]; STATE 7888 [sym__literalInt; sym__literalFloat];
   STATE 1384 [sym__ppIf]; STATE 1392 [sym__ppElse]; STATE 5789 [sym__ppEndIf];
   STATE 1388 [sym__ppStatementBlock]; STATE 6994 [aux_sym_literalString_repeat1];
   STATE 1388 [aux_sym__ppStatementBlock_repeat1];
   STATE 11939 [aux_sym__ppStatementBlock_repeat2]; ACTIONS 11056 [anon_sym_SEMI];
   ACTIONS 11098 [anon_sym_COMMA]; ACTIONS 11060 [anon_sym_LBRACK]; ACTIONS 47 [anon_sym_LPAREN];
   ACTIONS 49 [aux_sym__literalString_token1]; ACTIONS 51 [anon_sym_POUND];
   ACTIONS 53 [aux_sym__literalInt_token1]; ACTIONS 55 [aux_sym__literalInt_token2;
   aux_sym__literalInt_token3]; ACTIONS 53 [aux_sym__literalFloat_token1];
   ACTIONS 411 [aux_sym_ppUsesBlock_token1]; ACTIONS 11062 [aux_sym_ppUsesBlock_token2];
   ACTIONS 11100 [aux_sym_ppUsesBlock_token3]; ACTIONS 61 [sym_kAdd; sym_kSub];
   ACTIONS 63 [sym_kAt]; ACTIONS 65 [sym_kTrue; sym_kFalse]; ACTIONS 11066 [sym_labelNumber];
   ACTIONS 3 [sym__space]; ACTIONS 5 [sym_ppDirective]; ACTIONS 3 [sym_comment];
   ACTIONS 65 [sym_ppFragmentExpr]; ACTIONS 11098 [sym_ppFragmentStmt];
   ACTIONS 49 [sym__literalStringMultiline]; ACTIONS 11068 [sym_identifier];
   ACTIONS 73 [sym_kSpecialize]; ACTIONS 11070 [sym_kAsm]; ACTIONS 11072 [sym_kBegin];
   ACTIONS 11074 [sym_kCase]; ACTIONS 11076 [sym_kConst]; ACTIONS 11078 [sym_kFor];
   ACTIONS 11080 [sym_kFunction]; ACTIONS 11082 [sym_kGoto]; ACTIONS 11084 [sym_kIf];
   ACTIONS 105 [sym_kInherited]; ACTIONS 65 [sym_kNil]; ACTIONS 63 [sym_kNot];
   ACTIONS 11080 [sym_kProcedure]; ACTIONS 11086 [sym_kRaise]; ACTIONS 11088 [sym_kRepeat];
   ACTIONS 117 [sym_kString]; ACTIONS 11090 [sym_kTry]; ACTIONS 11092 [sym_kVar];
   ACTIONS 11094 [sym_kWhile]; ACTIONS 11096 [sym_kWith]].

(** State 1382. *)
Definition ts_parse_table_1382 : parse_row :=
  [STATE 5914 [sym_if]; STATE 1387 [sym_ifElse; sym_while; sym_repeat; sym_for; sym_foreach;
   sym_try; sym_case; sym_block; sym_asm; sym_with; sym_raise; sym_statement; sym_goto;
   sym__statement]; STATE 14947 [sym_assignment]; STATE 11829 [sym_varAssignDef];
   STATE 14947 [sym_varDef; sym_constDef]; STATE 1387 [sym_label]; STATE 8450 [sym__expr;
   sym_exprConditional]; STATE 7765 [sym__ref; sym_lambda; sym_inherited; sym_exprDot;
   sym_exprDeref; sym_exprAs; sym_exprTpl; sym_exprSubscript; sym_exprCall];
   STATE 8450 [sym_exprBinary; sym_exprUnary]; STATE 7765 [sym_exprParens; sym_exprBrackets;
   sym__literal; sym_literalString]; STATE 6994 [sym__literalString; sym_literalChar];
   STATE 7765 [sym_literalNumber]; STATE 7888 [sym__literalInt; sym__literalFloat];
   STATE 1384 [sym__ppIf]; STATE 1392 [sym__ppElse]; STATE 6037 [sym__ppEndIf];
   STATE 1387 [sym__ppStatementBlock]; STATE 6994 [aux_sym_literalString_repeat1];
   STATE 1387 [aux_sym__ppStatementBlock_repeat1];
   STATE 12004 [aux_sym__ppStatementBlock_repeat2]; ACTIONS 11056 [anon_sym_SEMI];
   ACTIONS 11102 [anon_sym_COMMA]; ACTIONS 11060 [anon_sym_LBRACK]; ACTIONS 47 [anon_sym_LPAREN];
   ACTIONS 49 [aux_sym__literalString_token1]; ACTIONS 51 [anon_sym_POUND];
   ACTIONS 53 [aux_sym__literalInt_token1]; ACTIONS 55 [aux_sym__literalInt_token2;
   aux_sym__literalInt_token3]; ACTIONS 53 [aux_sym__literalFloat_token1];
   ACTIONS 411 [aux_sym_ppUsesBlock_token1]; ACTIONS 11062 [aux_sym_ppUsesBlock_token2];
   ACTIONS 11104 [aux_sym_ppUsesBlock_token3]; ACTIONS 61 [sym_kAdd; sym_kSub];
   ACTIONS 63 [sym_kAt]; ACTIONS 65 [sym_kTrue; sym_kFalse]; ACTIONS 11066 [sym_labelNumber];
   ACTIONS 3 [sym__space]; ACTIONS 5 [sym_ppDirective]; ACTIONS 3 [sym_comment];
   ACTIONS 65 [sym_ppFragmentExpr]; ACTIONS 11102 [sym_ppFragmentStmt];
   ACTIONS 49 [sym__literalStringMultiline]; ACTIONS 11068 [sym_identifier];
   ACTIONS 73 [sym_kSpecialize]; ACTIONS 11070 [sym_kAsm]; ACTIONS 11072 [sym_kBegin];
   ACTIONS 11074 [sym_kCase]; ACTIONS 11076 [sym_kConst]; ACTIONS 11078 [sym_kFor];
   ACTIONS 11080 [sym_kFunction]; ACTIONS 11082 [sym_kGoto]; ACTIONS 11084 [sym_kIf];
   ACTIONS 105 [sym_kInherited]; ACTIONS 65 [sym_kNil]; ACTIONS 63 [sym_kNot];
   ACTIONS 11080 [sym_kProcedure]; ACTIONS 11086 [sym_kRaise]; ACTIONS 11088 [sym_kRepeat];
   ACTIONS 117 [sym_kString]; ACTIONS 11090 [sym_kTry]; ACTIONS 11092 [sym_kVar];
   ACTIONS 11094 [sym_kWhile]; ACTIONS 11096 [sym_kWith]].

(** State 1383. *)
Definition ts_parse_table_1383 : parse_row :=
  [STATE 5914 [sym_if]; STATE 1385 [sym_ifElse; sym_while; sym_repeat; sym_for; sym_foreach;
   sym_try; sym_case; sym_block; sym_asm; sym_with; sym_raise; sym_statement; sym_goto;
   sym__statement]; STATE 14947 [sym_assignment]; STATE 11829 [sym_varAssignDef];
   STATE 14947 [sym_varDef; sym_constDef]; STATE 1385 [sym_label]; STATE 8450 [sym__expr;
   sym_exprConditional]; STATE 7765 [sym__ref; sym_lambda; sym_inherited; sym_exprDot;
   sym_exprDeref; sym_exprAs; sym_exprTpl; sym_exprSubscript; sym_exprCall];
   STATE 8450 [sym_exprBinary; sym_exprUnary]; STATE 7765 [sym_exprParens; sym_exprBrackets;
   sym__literal; sym_literalString]; STATE 6994 [sym__literalString; sym_literalChar];
   STATE 7765 [sym_literalNumber]; STATE 7888 [sym__literalInt; sym__literalFloat];
   STATE 1384 [sym__ppIf]; STATE 1392 [sym__ppElse]; STATE 6209 [sym__ppEndIf];
   STATE 1385 [sym__ppStatementBlock]; STATE 6994 [aux_sym_literalString_repeat1];
   STATE 1385 [aux_sym__ppStatementBlock_repeat1];
   STATE 11699 [aux_sym__ppStatementBlock_repeat2]; ACTIONS 11056 [anon_sym_SEMI];
   ACTIONS 11106 [anon_sym_COMMA]; ACTIONS 11060 [anon_sym_LBRACK]; ACTIONS 47 [anon_sym_LPAREN];
   ACTIONS 49 [aux_sym__literalString_token1]; ACTIONS 51 [anon_sym_POUND];
   ACTIONS 53 [aux_sym__literalInt_token1]; ACTIONS 55 [aux_sym__literalInt_token2;
   aux_sym__literalInt_token3]; ACTIONS 53 [aux_sym__literalFloat_token1];
   ACTIONS 411 [aux_sym_ppUsesBlock_token1]; ACTIONS 11062 [aux_sym_ppUsesBlock_token2];
   ACTIONS 11108 [aux_sym_ppUsesBlock_token3]; ACTIONS 61 [sym_kAdd; sym_kSub];
   ACTIONS 63 [sym_kAt]; ACTIONS 65 [sym_kTrue; sym_kFalse]; ACTIONS 11066 [sym_labelNumber];
   ACTIONS 3 [sym__space]; ACTIONS 5 [sym_ppDirective]; ACTIONS 3 [sym_comment];
   ACTIONS 65 [sym_ppFragmentExpr]; ACTIONS 11106 [sym_ppFragmentStmt];
   ACTIONS 49 [sym__literalStringMultiline]; ACTIONS 11068 [sym_identifier];
   ACTIONS 73 [sym_kSpecialize]; ACTIONS 11070 [sym_kAsm]; ACTIONS 11072 [sym_kBegin];
   ACTIONS 11074 [sym_kCase]; ACTIONS 11076 [sym_kConst]; ACTIONS 11078 [sym_kFor];
   ACTIONS 11080 [sym_kFunction]; ACTIONS 11082 [sym_kGoto]; ACTIONS 11084 [sym_kIf];
   ACTIONS 105 [sym_kInherited]; ACTIONS 65 [sym_kNil]; ACTIONS 63 [sym_kNot];
   ACTIONS 11080 [sym_kProcedure]; ACTIONS 11086 [sym_kRaise]; ACTIONS 11088 [sym_kRepeat];
   ACTIONS 117 [sym_kString]; ACTIONS 11090 [sym_kTry]; ACTIONS 11092 [sym_kVar];
   ACTIONS 11094 [sym_kWhile]; ACTIONS 11096 [sym_kWith]].

(** State 1384. *)
Definition ts_parse_table_1384 : parse_row :=
  [STATE 5914 [sym_if]; STATE 1389 [sym_ifElse; sym_while; sym_repeat; sym_for; sym_foreach;
   sym_try; sym_case; sym_block; sym_asm; sym_with; sym_raise; sym_statement; sym_goto;
   sym__statement]; STATE 14947 [sym_assignment]; STATE 11829 [sym_varAssignDef];
   STATE 14947 [sym_varDef; sym_constDef]; STATE 1389 [sym_label]; STATE 8450 [sym__expr;
   sym_exprConditional]; STATE 7765 [sym__ref; sym_lambda; sym_inherited; sym_exprDot;
   sym_exprDeref; sym_exprAs; sym_exprTpl; sym_exprSubscript; sym_exprCall];
   STATE 8450 [sym_exprBinary; sym_exprUnary]; STATE 7765 [sym_exprParens; sym_exprBrackets;
   sym__literal; sym_literalString]; STATE 6994 [sym__literalString; sym_literalChar];
   STATE 7765 [sym_literalNumber]; STATE 7888 [sym__literalInt; sym__literalFloat];
   STATE 1384 [sym__ppIf]; STATE 1392 [sym__ppElse]; STATE 5894 [sym__ppEndIf];
   STATE 1389 [sym__ppStatementBlock]; STATE 6994 [aux_sym_literalString_repeat1];
   STATE 1389 [aux_sym__ppStatementBlock_repeat1];
   STATE 11789 [aux_sym__ppStatementBlock_repeat2]; ACTIONS 11056 [anon_sym_SEMI];
   ACTIONS 11110 [anon_sym_COMMA]; ACTIONS 11060 [anon_sym_LBRACK]; ACTIONS 47 [anon_sym_LPAREN];
   ACTIONS 49 [aux_sym__literalString_token1]; ACTIONS 51 [anon_sym_POUND];
   ACTIONS 53 [aux_sym__literalInt_token1]; ACTIONS 55 [aux_sym__literalInt_token2;
   aux_sym__literalInt_token3]; ACTIONS 53 [aux_sym__literalFloat_token1];
   ACTIONS 411 [aux_sym_ppUsesBlock_token1]; ACTIONS 11062 [aux_sym_ppUsesBlock_token2];
   ACTIONS 11112 [aux_sym_ppUsesBlock_token3]; ACTIONS 61 [sym_kAdd; sym_kSub];
   ACTIONS 63 [sym_kAt]; ACTIONS 65 [sym_kTrue; sym_kFalse]; ACTIONS 11066 [sym_labelNumber];
   ACTIONS 3 [sym__space]; ACTIONS 5 [sym_ppDirective]; ACTIONS 3 [sym_comment];
   ACTIONS 65 [sym_ppFragmentExpr]; ACTIONS 11110 [sym_ppFragmentStmt];
   ACTIONS 49 [sym__literalStringMultiline]; ACTIONS 11068 [sym_identifier];
   ACTIONS 73 [sym_kSpecialize]; ACTIONS 11070 [sym_kAsm]; ACTIONS 11072 [sym_kBegin];
   ACTIONS 11074 [sym_kCase]; ACTIONS 11076 [sym_kConst]; ACTIONS 11078 [sym_kFor];
   ACTIONS 11080 [sym_kFunction]; ACTIONS 11082 [sym_kGoto]; ACTIONS 11084 [sym_kIf];
   ACTIONS 105 [sym_kInherited]; ACTIONS 65 [sym_kNil]; ACTIONS 63 [sym_kNot];
   ACTIONS 11080 [sym_kProcedure]; ACTIONS 11086 [sym_kRaise]; ACTIONS 11088 [sym_kRepeat];
   ACTIONS 117 [sym_kString]; ACTIONS 11090 [sym_kTry]; ACTIONS 11092 [sym_kVar];
   ACTIONS 11094 [sym_kWhile]; ACTIONS 11096 [sym_kWith]].

(** State 1385. *)
Definition ts_parse_table_1385 : parse_row :=
  [STATE 5914 [sym_if]; STATE 1394 [sym_ifElse; sym_while; sym_repeat; sym_for; sym_foreach;
   sym_try; sym_case; sym_block; sym_asm; sym_with; sym_raise; sym_statement; sym_goto;
   sym__statement]; STATE 14947 [sym_assignment]; STATE 11829 [sym_varAssignDef];
   STATE 14947 [sym_varDef; sym_constDef]; STATE 1394 [sym_label]; STATE 8450 [sym__expr;
   sym_exprConditional]; STATE 7765 [sym__ref; sym_lambda; sym_inherited; sym_exprDot;
   sym_exprDeref; sym_exprAs; sym_exprTpl; sym_exprSubscript; sym_exprCall];
   STATE 8450 [sym_exprBinary; sym_exprUnary]; STATE 7765 [sym_exprParens; sym_exprBrackets;
   sym__literal; sym_literalString]; STATE 6994 [sym__literalString; sym_literalChar];
   STATE 7765 [sym_literalNumber]; STATE 7888 [sym__literalInt; sym__literalFloat];
   STATE 1384 [sym__ppIf]; STATE 1392 [sym__ppElse]; STATE 6341 [sym__ppEndIf];
   STATE 1394 [sym__ppStatementBlock]; STATE 6994 [aux_sym_literalString_repeat1];
   STATE 1394 [aux_sym__ppStatementBlock_repeat1];
   STATE 11933 [aux_sym__ppStatementBlock_repeat2]; ACTIONS 11056 [anon_sym_SEMI];
   ACTIONS 11114 [anon_sym_COMMA]; ACTIONS 11060 [anon_sym_LBRACK]; ACTIONS 47 [anon_sym_LPAREN];
   ACTIONS 49 [aux_sym__literalString_token1]; ACTIONS 51 [anon_sym_POUND];
   ACTIONS 53 [aux_sym__literalInt_token1]; ACTIONS 55 [aux_sym__literalInt_token2;
   aux_sym__literalInt_token3]; ACTIONS 53 [aux_sym__literalFloat_token1];
   ACTIONS 411 [aux_sym_ppUsesBlock_token1]; ACTIONS 11062 [aux_sym_ppUsesBlock_token2];
   ACTIONS 11108 [aux_sym_ppUsesBlock_token3]; ACTIONS 61 [sym_kAdd; sym_kSub];
   ACTIONS 63 [sym_kAt]; ACTIONS 65 [sym_kTrue; sym_kFalse]; ACTIONS 11066 [sym_labelNumber];
   ACTIONS 3 [sym__space]; ACTIONS 5 [sym_ppDirective]; ACTIONS 3 [sym_comment];
   ACTIONS 65 [sym_ppFragmentExpr]; ACTIONS 11114 [sym_ppFragmentStmt];
   ACTIONS 49 [sym__literalStringMultiline]; ACTIONS 11068 [sym_identifier];
   ACTIONS 73 [sym_kSpecialize]; ACTIONS 11070 [sym_kAsm]; ACTIONS 11072 [sym_kBegin];
   ACTIONS 11074 [sym_kCase]; ACTIONS 11076 [sym_kConst]; ACTIONS 11078 [sym_kFor];
   ACTIONS 11080 [sym_kFunction]; ACTIONS 11082 [sym_kGoto]; ACTIONS 11084 [sym_kIf];
   ACTIONS 105 [sym_kInherited]; ACTIONS 65 [sym_kNil]; ACTIONS 63 [sym_kNot];
   ACTIONS 11080 [sym_kProcedure]; ACTIONS 11086 [sym_kRaise]; ACTIONS 11088 [sym_kRepeat];
   ACTIONS 117 [sym_kString]; ACTIONS 11090 [sym_kTry]; ACTIONS 11092 [sym_kVar];
   ACTIONS 11094 [sym_kWhile]; ACTIONS 11096 [sym_kWith]].

(** State 1386. *)
Definition ts_parse_table_1386 : parse_row :=
  [STATE 5914 [sym_if]; STATE 1394 [sym_ifElse; sym_while; sym_repeat; sym_for; sym_foreach;
   sym_try; sym_case; sym_block; sym_asm; sym_with; sym_raise; sym_statement; sym_goto;
   sym__statement]; STATE 14947 [sym_assignment]; STATE 11829 [sym_varAssignDef];
   STATE 14947 [sym_varDef; sym_constDef]; STATE 1394 [sym_label]; STATE 8450 [sym__expr;
   sym_exprConditional]; STATE 7765 [sym__ref; sym_lambda; sym_inherited; sym_exprDot;
   sym_exprDeref; sym_exprAs; sym_exprTpl; sym_exprSubscript; sym_exprCall];
   STATE 8450 [sym_exprBinary; sym_exprUnary]; STATE 7765 [sym_exprParens; sym_exprBrackets;
   sym__literal; sym_literalString]; STATE 6994 [sym__literalString; sym_literalChar];
   STATE 7765 [sym_literalNumber]; STATE 7888 [sym__literalInt; sym__literalFloat];
   STATE 1384 [sym__ppIf]; STATE 1392 [sym__ppElse]; STATE 6423 [sym__ppEndIf];
   STATE 1394 [sym__ppStatementBlock]; STATE 6994 [aux_sym_literalString_repeat1];
   STATE 1394 [aux_sym__ppStatementBlock_repeat1];
   STATE 11893 [aux_sym__ppStatementBlock_repeat2]; ACTIONS 11056 [anon_sym_SEMI];
   ACTIONS 11114 [anon_sym_COMMA]; ACTIONS 11060 [anon_sym_LBRACK]; ACTIONS 47 [anon_sym_LPAREN];
   ACTIONS 49 [aux_sym__literalString_token1]; ACTIONS 51 [anon_sym_POUND];
   ACTIONS 53 [aux_sym__literalInt_token1]; ACTIONS 55 [aux_sym__literalInt_token2;
   aux_sym__literalInt_token3]; ACTIONS 53 [aux_sym__literalFloat_token1];
   ACTIONS 411 [aux_sym_ppUsesBlock_token1]; ACTIONS 11062 [aux_sym_ppUsesBlock_token2];
   ACTIONS 11116 [aux_sym_ppUsesBlock_token3]; ACTIONS 61 [sym_kAdd; sym_kSub];
   ACTIONS 63 [sym_kAt]; ACTIONS 65 [sym_kTrue; sym_kFalse]; ACTIONS 11066 [sym_labelNumber];
   ACTIONS 3 [sym__space]; ACTIONS 5 [sym_ppDirective]; ACTIONS 3 [sym_comment];
   ACTIONS 65 [sym_ppFragmentExpr]; ACTIONS 11114 [sym_ppFragmentStmt];
   ACTIONS 49 [sym__literalStringMultiline]; ACTIONS 11068 [sym_identifier];
   ACTIONS 73 [sym_kSpecialize]; ACTIONS 11070 [sym_kAsm]; ACTIONS 11072 [sym_kBegin];
   ACTIONS 11074 [sym_kCase]; ACTIONS 11076 [sym_kConst]; ACTIONS 11078 [sym_kFor];
   ACTIONS 11080 [sym_kFunction]; ACTIONS 11082 [sym_kGoto]; ACTIONS 11084 [sym_kIf];
   ACTIONS 105 [sym_kInherited]; ACTIONS 65 [sym_kNil]; ACTIONS 63 [sym_kNot];
   ACTIONS 11080 [sym_kProcedure]; ACTIONS 11086 [sym_kRaise]; ACTIONS 11088 [sym_kRepeat];
   ACTIONS 117 [sym_kString]; ACTIONS 11090 [sym_kTry]; ACTIONS 11092 [sym_kVar];
   ACTIONS 11094 [sym_kWhile]; ACTIONS 11096 [sym_kWith]].

(** State 1387. *)
Definition ts_parse_table_1387 : parse_row :=
  [STATE 5914 [sym_if]; STATE 1394 [sym_ifElse; sym_while; sym_repeat; sym_for; sym_foreach;
   sym_try; sym_case; sym_block; sym_asm; sym_with; sym_raise; sym_statement; sym_goto;
   sym__statement]; STATE 14947 [sym_assignment]; STATE 11829 [sym_varAssignDef];
   STATE 14947 [sym_varDef; sym_constDef]; STATE 1394 [sym_label]; STATE 8450 [sym__expr;
   sym_exprConditional]; STATE 7765 [sym__ref; sym_lambda; sym_inherited; sym_exprDot;
   sym_exprDeref; sym_exprAs; sym_exprTpl; sym_exprSubscript; sym_exprCall];
   STATE 8450 [sym_exprBinary; sym_exprUnary]; STATE 7765 [sym_exprParens; sym_exprBrackets;
   sym__literal; sym_literalString]; STATE 6994 [sym__literalString; sym_literalChar];
   STATE 7765 [sym_literalNumber]; STATE 7888 [sym__literalInt; sym__literalFloat];
   STATE 1384 [sym__ppIf]; STATE 1392 [sym__ppElse]; STATE 6102 [sym__ppEndIf];
   STATE 1394 [sym__ppStatementBlock]; STATE 6994 [aux_sym_literalString_repeat1];
   STATE 1394 [aux_sym__ppStatementBlock_repeat1];
   STATE 12039 [aux_sym__ppStatementBlock_repeat2]; ACTIONS 11056 [anon_sym_SEMI];
   ACTIONS 11114 [anon_sym_COMMA]; ACTIONS 11060 [anon_sym_LBRACK]; ACTIONS 47 [anon_sym_LPAREN];
   ACTIONS 49 [aux_sym__literalString_token1]; ACTIONS 51 [anon_sym_POUND];
   ACTIONS 53 [aux_sym__literalInt_token1]; ACTIONS 55 [aux_sym__literalInt_token2;
   aux_sym__literalInt_token3]; ACTIONS 53 [aux_sym__literalFloat_token1];
   ACTIONS 411 [aux_sym_ppUsesBlock_token1]; ACTIONS 11062 [aux_sym_ppUsesBlock_token2];
   ACTIONS 11104 [aux_sym_ppUsesBlock_token3]; ACTIONS 61 [sym_kAdd; sym_kSub];
   ACTIONS 63 [sym_kAt]; ACTIONS 65 [sym_kTrue; sym_kFalse]; ACTIONS 11066 [sym_labelNumber];
   ACTIONS 3 [sym__space]; ACTIONS 5 [sym_ppDirective]; ACTIONS 3 [sym_comment];
   ACTIONS 65 [sym_ppFragmentExpr]; ACTIONS 11114 [sym_ppFragmentStmt];
   ACTIONS 49 [sym__literalStringMultiline]; ACTIONS 11068 [sym_identifier];
   ACTIONS 73 [sym_kSpecialize]; ACTIONS 11070 [sym_kAsm]; ACTIONS 11072 [sym_kBegin];
   ACTIONS 11074 [sym_kCase]; ACTIONS 11076 [sym_kConst]; ACTIONS 11078 [sym_kFor];
   ACTIONS 11080 [sym_kFunction]; ACTIONS 11082 [sym_kGoto]; ACTIONS 11084 [sym_kIf];
   ACTIONS 105 [sym_kInherited]; ACTIONS 65 [sym_kNil]; ACTIONS 63 [sym_kNot];
   ACTIONS 11080 [sym_kProcedure]; ACTIONS 11086 [sym_kRaise]; ACTIONS 11088 [sym_kRepeat];
   ACTIONS 117 [sym_kString]; ACTIONS 11090 [sym_kTry]; ACTIONS 11092 [sym_kVar];
   ACTIONS 11094 [sym_kWhile]; ACTIONS 11096 [sym_kWith]].

(** State 1388. *)
Definition ts_parse_table_1388 : parse_row :=
  [STATE 5914 [sym_if]; STATE 1394 [sym_ifElse; sym_while; sym_repeat; sym_for; sym_foreach;
   sym_try; sym_case; sym_block; sym_asm; sym_with; sym_raise; sym_statement; sym_goto;
   sym__statement]; STATE 14947 [sym_assignment]; STATE 11829 [sym_varAssignDef];
   STATE 14947 [sym_varDef; sym_constDef]; STATE 1394 [sym_label]; STATE 8450 [sym__expr;
   sym_exprConditional]; STATE 7765 [sym__ref; sym_lambda; sym_inherited; sym_exprDot;
   sym_exprDeref; sym_exprAs; sym_exprTpl; sym_exprSubscript; sym_exprCall];
   STATE 8450 [sym_exprBinary; sym_exprUnary]; STATE 7765 [sym_exprParens; sym_exprBrackets;
   sym__literal; sym_literalString]; STATE 6994 [sym__literalString; sym_literalChar];
   STATE 7765 [sym_literalNumber]; STATE 7888 [sym__literalInt; sym__literalFloat];
   STATE 1384 [sym__ppIf]; STATE 1392 [sym__ppElse]; STATE 5742 [sym__ppEndIf];
   STATE 1394 [sym__ppStatementBlock]; STATE 6994 [aux_sym_literalString_repeat1];
   STATE 1394 [aux_sym__ppStatementBlock_repeat1];
   STATE 11947 [aux_sym__ppStatementBlock_repeat2]; ACTIONS 11056 [anon_sym_SEMI];
   ACTIONS 11114 [anon_sym_COMMA]; ACTIONS 11060 [anon_sym_LBRACK]; ACTIONS 47 [anon_sym_LPAREN];
   ACTIONS 49 [aux_sym__literalString_token1]; ACTIONS 51 [anon_sym_POUND];
   ACTIONS 53 [aux_sym__literalInt_token1]; ACTIONS 55 [aux_sym__literalInt_token2;
   aux_sym__literalInt_token3]; ACTIONS 53 [aux_sym__literalFloat_token1];
   ACTIONS 411 [aux_sym_ppUsesBlock_token1]; ACTIONS 11062 [aux_sym_ppUsesBlock_token2];
   ACTIONS 11100 [aux_sym_ppUsesBlock_token3]; ACTIONS 61 [sym_kAdd; sym_kSub];
   ACTIONS 63 [sym_kAt]; ACTIONS 65 [sym_kTrue; sym_kFalse]; ACTIONS 11066 [sym_labelNumber];
   ACTIONS 3 [sym__space]; ACTIONS 5 [sym_ppDirective]; ACTIONS 3 [sym_comment];
   ACTIONS 65 [sym_ppFragmentExpr]; ACTIONS 11114 [sym_ppFragmentStmt];
   ACTIONS 49 [sym__literalStringMultiline]; ACTIONS 11068 [sym_identifier];
   ACTIONS 73 [sym_kSpecialize]; ACTIONS 11070 [sym_kAsm]; ACTIONS 11072 [sym_kBegin];
   ACTIONS 11074 [sym_kCase]; ACTIONS 11076 [sym_kConst]; ACTIONS 11078 [sym_kFor];
   ACTIONS 11080 [sym_kFunction]; ACTIONS 11082 [sym_kGoto]; ACTIONS 11084 [sym_kIf];
   ACTIONS 105 [sym_kInherited]; ACTIONS 65 [sym_kNil]; ACTIONS 63 [sym_kNot];
   ACTIONS 11080 [sym_kProcedure]; ACTIONS 11086 [sym_kRaise]; ACTIONS 11088 [sym_kRepeat];
   ACTIONS 117 [sym_kString]; ACTIONS 11090 [sym_kTry]; ACTIONS 11092 [sym_kVar];
   ACTIONS 11094 [sym_kWhile]; ACTIONS 11096 [sym_kWith]].

(** State 1389. *)
Definition ts_parse_table_1389 : parse_row :=
  [STATE 5914 [sym_if]; STATE 1394 [sym_ifElse; sym_while; sym_repeat; sym_for; sym_foreach;
   sym_try; sym_case; sym_block; sym_asm; sym_with; sym_raise; sym_statement; sym_goto;
   sym__statement]; STATE 14947 [sym_assignment]; STATE 11829 [sym_varAssignDef];
   STATE 14947 [sym_varDef; sym_constDef]; STATE 1394 [sym_label]; STATE 8450 [sym__expr;
   sym_exprConditional]; STATE 7765 [sym__ref; sym_lambda; sym_inherited; sym_exprDot;
   sym_exprDeref; sym_exprAs; sym_exprTpl; sym_exprSubscript; sym_exprCall];
   STATE 8450 [sym_exprBinary; sym_exprUnary]; STATE 7765 [sym_exprParens; sym_exprBrackets;
   sym__literal; sym_literalString]; STATE 6994 [sym__literalString; sym_literalChar];
   STATE 7765 [sym_literalNumber]; STATE 7888 [sym__literalInt; sym__literalFloat];
   STATE 1384 [sym__ppIf]; STATE 1392 [sym__ppElse]; STATE 5886 [sym__ppEndIf];
   STATE 1394 [sym__ppStatementBlock]; STATE 6994 [aux_sym_literalString_repeat1];
   STATE 1394 [aux_sym__ppStatementBlock_repeat1];
   STATE 11821 [aux_sym__ppStatementBlock_repeat2]; ACTIONS 11056 [anon_sym_SEMI];
   ACTIONS 11114 [anon_sym_COMMA]; ACTIONS 11060 [anon_sym_LBRACK]; ACTIONS 47 [anon_sym_LPAREN];
   ACTIONS 49 [aux_sym__literalString_token1]; ACTIONS 51 [anon_sym_POUND];
   ACTIONS 53 [aux_sym__literalInt_token1]; ACTIONS 55 [aux_sym__literalInt_token2;
   aux_sym__literalInt_token3]; ACTIONS 53 [aux_sym__literalFloat_token1];
   ACTIONS 411 [aux_sym_ppUsesBlock_token1]; ACTIONS 11062 [aux_sym_ppUsesBlock_token2];
   ACTIONS 11112 [aux_sym_ppUsesBlock_token3]; ACTIONS 61 [sym_kAdd; sym_kSub];
   ACTIONS 63 [sym_kAt]; ACTIONS 65 [sym_kTrue; sym_kFalse]; ACTIONS 11066 [sym_labelNumber];
   ACTIONS 3 [sym__space]; ACTIONS 5 [sym_ppDirective]; ACTIONS 3 [sym_comment];
   ACTIONS 65 [sym_ppFragmentExpr]; ACTIONS 11114 [sym_ppFragmentStmt];
   ACTIONS 49 [sym__literalStringMultiline]; ACTIONS 11068 [sym_identifier];
   ACTIONS 73 [sym_kSpecialize]; ACTIONS 11070 [sym_kAsm]; ACTIONS 11072 [sym_kBegin];
   ACTIONS 11074 [sym_kCase]; ACTIONS 11076 [sym_kConst]; ACTIONS 11078 [sym_kFor];
   ACTIONS 11080 [sym_kFunction]; ACTIONS 11082 [sym_kGoto]; ACTIONS 11084 [sym_kIf];
   ACTIONS 105 [sym_kInherited]; ACTIONS 65 [sym_kNil]; ACTIONS 63 [sym_kNot];
   ACTIONS 11080 [sym_kProcedure]; ACTIONS 11086 [sym_kRaise]; ACTIONS 11088 [sym_kRepeat];
   ACTIONS 117 [sym_kString]; ACTIONS 11090 [sym_kTry]; ACTIONS 11092 [sym_kVar];
   ACTIONS 11094 [sym_kWhile]; ACTIONS 11096 [sym_kWith]].

(** State 1390. *)
Definition ts_parse_table_1390 : parse_row :=
  [STATE 5914 [sym_if]; STATE 1394 [sym_ifElse; sym_while; sym_repeat; sym_for; sym_foreach;
   sym_try; sym_case; sym_block; sym_asm; sym_with; sym_raise; sym_statement; sym_goto;
   sym__statement]; STATE 14947 [sym_assignment]; STATE 11829 [sym_varAssignDef];
   STATE 14947 [sym_varDef; sym_constDef]; STATE 1394 [sym_label]; STATE 8450 [sym__expr;
   sym_exprConditional]; STATE 7765 [sym__ref; sym_lambda; sym_inherited; sym_exprDot;
   sym_exprDeref; sym_exprAs; sym_exprTpl; sym_exprSubscript; sym_exprCall];
   STATE 8450 [sym_exprBinary; sym_exprUnary]; STATE 7765 [sym_exprParens; sym_exprBrackets;
   sym__literal; sym_literalString]; STATE 6994 [sym__literalString; sym_literalChar];
   STATE 7765 [sym_literalNumber]; STATE 7888 [sym__literalInt; sym__literalFloat];
   STATE 1384 [sym__ppIf]; STATE 1392 [sym__ppElse]; STATE 6225 [sym__ppEndIf];
   STATE 1394 [sym__ppStatementBlock]; STATE 6994 [aux_sym_literalString_repeat1];
   STATE 1394 [aux_sym__ppStatementBlock_repeat1];
   STATE 12029 [aux_sym__ppStatementBlock_repeat2]; ACTIONS 11056 [anon_sym_SEMI];
   ACTIONS 11114 [anon_sym_COMMA]; ACTIONS 11060 [anon_sym_LBRACK]; ACTIONS 47 [anon_sym_LPAREN];
   ACTIONS 49 [aux_sym__literalString_token1]; ACTIONS 51 [anon_sym_POUND];
   ACTIONS 53 [aux_sym__literalInt_token1]; ACTIONS 55 [aux_sym__literalInt_token2;
   aux_sym__literalInt_token3]; ACTIONS 53 [aux_sym__literalFloat_token1];
   ACTIONS 411 [aux_sym_ppUsesBlock_token1]; ACTIONS 11062 [aux_sym_ppUsesBlock_token2];
   ACTIONS 11064 [aux_sym_ppUsesBlock_token3]; ACTIONS 61 [sym_kAdd; sym_kSub];
   ACTIONS 63 [sym_kAt]; ACTIONS 65 [sym_kTrue; sym_kFalse]; ACTIONS 11066 [sym_labelNumber];
   ACTIONS 3 [sym__space]; ACTIONS 5 [sym_ppDirective]; ACTIONS 3 [sym_comment];
   ACTIONS 65 [sym_ppFragmentExpr]; ACTIONS 11114 [sym_ppFragmentStmt];
   ACTIONS 49 [sym__literalStringMultiline]; ACTIONS 11068 [sym_identifier];
   ACTIONS 73 [sym_kSpecialize]; ACTIONS 11070 [sym_kAsm]; ACTIONS 11072 [sym_kBegin];
   ACTIONS 11074 [sym_kCase]; ACTIONS 11076 [sym_kConst]; ACTIONS 11078 [sym_kFor];
   ACTIONS 11080 [sym_kFunction]; ACTIONS 11082 [sym_kGoto]; ACTIONS 11084 [sym_kIf];
   ACTIONS 105 [sym_kInherited]; ACTIONS 65 [sym_kNil]; ACTIONS 63 [sym_kNot];
   ACTIONS 11080 [sym_kProcedure]; ACTIONS 11086 [sym_kRaise]; ACTIONS 11088 [sym_kRepeat];
   ACTIONS 117 [sym_kString]; ACTIONS 11090 [sym_kTry]; ACTIONS 11092 [sym_kVar];
   ACTIONS 11094 [sym_kWhile]; ACTIONS 11096 [sym_kWith]].

(** State 1391. *)
Definition ts_parse_table_1391 : parse_row :=
  [STATE 5914 [sym_if]; STATE 1386 [sym_ifElse; sym_while; sym_repeat; sym_for; sym_foreach;
   sym_try; sym_case; sym_block; sym_asm; sym_with; sym_raise; sym_statement; sym_goto;
   sym__statement]; STATE 14947 [sym_assignment]; STATE 11829 [sym_varAssignDef];
   STATE 14947 [sym_varDef; sym_constDef]; STATE 1386 [sym_label]; STATE 8450 [sym__expr;
   sym_exprConditional]; STATE 7765 [sym__ref; sym_lambda; sym_inherited; sym_exprDot;
   sym_exprDeref; sym_exprAs; sym_exprTpl; sym_exprSubscript; sym_exprCall];
   STATE 8450 [sym_exprBinary; sym_exprUnary]; STATE 7765 [sym_exprParens; sym_exprBrackets;
   sym__literal; sym_literalString]; STATE 6994 [sym__literalString; sym_literalChar];
   STATE 7765 [sym_literalNumber]; STATE 7888 [sym__literalInt; sym__literalFloat];
   STATE 1384 [sym__ppIf]; STATE 1392 [sym__ppElse]; STATE 6443 [sym__ppEndIf];
   STATE 1386 [sym__ppStatementBlock]; STATE 6994 [aux_sym_literalString_repeat1];
   STATE 1386 [aux_sym__ppStatementBlock_repeat1];
   STATE 11881 [aux_sym__ppStatementBlock_repeat2]; ACTIONS 11056 [anon_sym_SEMI];
   ACTIONS 11118 [anon_sym_COMMA]; ACTIONS 11060 [anon_sym_LBRACK]; ACTIONS 47 [anon_sym_LPAREN];
   ACTIONS 49 [aux_sym__literalString_token1]; ACTIONS 51 [anon_sym_POUND];
   ACTIONS 53 [aux_sym__literalInt_token1]; ACTIONS 55 [aux_sym__literalInt_token2;
   aux_sym__literalInt_token3]; ACTIONS 53 [aux_sym__literalFloat_token1];
   ACTIONS 411 [aux_sym_ppUsesBlock_token1]; ACTIONS 11062 [aux_sym_ppUsesBlock_token2];
   ACTIONS 11116 [aux_sym_ppUsesBlock_token3]; ACTIONS 61 [sym_kAdd; sym_kSub];
   ACTIONS 63 [sym_kAt]; ACTIONS 65 [sym_kTrue; sym_kFalse]; ACTIONS 11066 [sym_labelNumber];
   ACTIONS 3 [sym__space]; ACTIONS 5 [sym_ppDirective]; ACTIONS 3 [sym_comment];
   ACTIONS 65 [sym_ppFragmentExpr]; ACTIONS 11118 [sym_ppFragmentStmt];
   ACTIONS 49 [sym__literalStringMultiline]; ACTIONS 11068 [sym_identifier];
   ACTIONS 73 [sym_kSpecialize]; ACTIONS 11070 [sym_kAsm]; ACTIONS 11072 [sym_kBegin];
   ACTIONS 11074 [sym_kCase]; ACTIONS 11076 [sym_kConst]; ACTIONS 11078 [sym_kFor];
   ACTIONS 11080 [sym_kFunction]; ACTIONS 11082 [sym_kGoto]; ACTIONS 11084 [sym_kIf];
   ACTIONS 105 [sym_kInherited]; ACTIONS 65 [sym_kNil]; ACTIONS 63 [sym_kNot];
   ACTIONS 11080 [sym_kProcedure]; ACTIONS 11086 [sym_kRaise]; ACTIONS 11088 [sym_kRepeat];
   ACTIONS 117 [sym_kString]; ACTIONS 11090 [sym_kTry]; ACTIONS 11092 [sym_kVar];
   ACTIONS 11094 [sym_kWhile]; ACTIONS 11096 [sym_kWith]].

(** State 1392. *)
Definition ts_parse_table_1392 : parse_row :=
  [STATE 5914 [sym_if]; STATE 1393 [sym_ifElse; sym_while; sym_repeat; sym_for; sym_foreach;
   sym_try; sym_case; sym_block; sym_asm; sym_with; sym_raise; sym_statement; sym_goto;
   sym__statement]; STATE 14947 [sym_assignment]; STATE 11829 [sym_varAssignDef];
   STATE 14947 [sym_varDef; sym_constDef]; STATE 1393 [sym_label]; STATE 8450 [sym__expr;
   sym_exprConditional]; STATE 7765 [sym__ref; sym_lambda; sym_inherited; sym_exprDot;
   sym_exprDeref; sym_exprAs; sym_exprTpl; sym_exprSubscript; sym_exprCall];
   STATE 8450 [sym_exprBinary; sym_exprUnary]; STATE 7765 [sym_exprParens; sym_exprBrackets;
   sym__literal; sym_literalString]; STATE 6994 [sym__literalString; sym_literalChar];
   STATE 7765 [sym_literalNumber]; STATE 7888 [sym__literalInt; sym__literalFloat];
   STATE 1384 [sym__ppIf]; STATE 1393 [sym__ppStatementBlock];
   STATE 6994 [aux_sym_literalString_repeat1]; STATE 1393 [aux_sym__ppStatementBlock_repeat1];
   ACTIONS 11056 [anon_sym_SEMI]; ACTIONS 11120 [anon_sym_COMMA];
   ACTIONS 11060 [anon_sym_LBRACK]; ACTIONS 47 [anon_sym_LPAREN];
   ACTIONS 49 [aux_sym__literalString_token1]; ACTIONS 51 [anon_sym_POUND];
   ACTIONS 53 [aux_sym__literalInt_token1]; ACTIONS 55 [aux_sym__literalInt_token2;
   aux_sym__literalInt_token3]; ACTIONS 53 [aux_sym__literalFloat_token1];
   ACTIONS 411 [aux_sym_ppUsesBlock_token1]; ACTIONS 11122 [aux_sym_ppUsesBlock_token2;
   aux_sym_ppUsesBlock_token3]; ACTIONS 61 [sym_kAdd; sym_kSub]; ACTIONS 63 [sym_kAt];
   ACTIONS 65 [sym_kTrue; sym_kFalse]; ACTIONS 11066 [sym_labelNumber]; ACTIONS 3 [sym__space];
   ACTIONS 5 [sym_ppDirective]; ACTIONS 3 [sym_comment]; ACTIONS 65 [sym_ppFragmentExpr];
   ACTIONS 11120 [sym_ppFragmentStmt]; ACTIONS 49 [sym__literalStringMultiline];
   ACTIONS 11068 [sym_identifier]; ACTIONS 73 [sym_kSpecialize]; ACTIONS 11070 [sym_kAsm];
   ACTIONS 11072 [sym_kBegin]; ACTIONS 11074 [sym_kCase]; ACTIONS 11076 [sym_kConst];
   ACTIONS 11078 [sym_kFor]; ACTIONS 11080 [sym_kFunction]; ACTIONS 11082 [sym_kGoto];
   ACTIONS 11084 [sym_kIf]; ACTIONS 105 [sym_kInherited]; ACTIONS 65 [sym_kNil];
   ACTIONS 63 [sym_kNot]; ACTIONS 11080 [sym_kProcedure]; ACTIONS 11086 [sym_kRaise];
   ACTIONS 11088 [sym_kRepeat]; ACTIONS 117 [sym_kString]; ACTIONS 11090 [sym_kTry];
   ACTIONS 11092 [sym_kVar]; ACTIONS 11094 [sym_kWhile]; ACTIONS 11096 [sym_kWith]].

(** State 1393. *)
Definition ts_parse_table_1393 : parse_row :=
  [STATE 5914 [sym_if]; STATE 1394 [sym_ifElse; sym_while; sym_repeat; sym_for; sym_foreach;
   sym_try; sym_case; sym_block; sym_asm; sym_with; sym_raise; sym_statement; sym_goto;
   sym__statement]; STATE 14947 [sym_assignment]; STATE 11829 [sym_varAssignDef];
   STATE 14947 [sym_varDef; sym_constDef]; STATE 1394 [sym_label]; STATE 8450 [sym__expr;
   sym_exprConditional]; STATE 7765 [sym__ref; sym_lambda; sym_inherited; sym_exprDot;
   sym_exprDeref; sym_exprAs; sym_exprTpl; sym_exprSubscript; sym_exprCall];
   STATE 8450 [sym_exprBinary; sym_exprUnary]; STATE 7765 [sym_exprParens; sym_exprBrackets;
   sym__literal; sym_literalString]; STATE 6994 [sym__literalString; sym_literalChar];
   STATE 7765 [sym_literalNumber]; STATE 7888 [sym__literalInt; sym__literalFloat];
   STATE 1384 [sym__ppIf]; STATE 1394 [sym__ppStatementBlock];
   STATE 6994 [aux_sym_literalString_repeat1]; STATE 1394 [aux_sym__ppStatementBlock_repeat1];
   ACTIONS 11056 [anon_sym_SEMI]; ACTIONS 11114 [anon_sym_COMMA];
   ACTIONS 11060 [anon_sym_LBRACK]; ACTIONS 47 [anon_sym_LPAREN];
   ACTIONS 49 [aux_sym__literalString_token1]; ACTIONS 51 [anon_sym_POUND];
   ACTIONS 53 [aux_sym__literalInt_token1]; ACTIONS 55 [aux_sym__literalInt_token2;
   aux_sym__literalInt_token3]; ACTIONS 53 [aux_sym__literalFloat_token1];
   ACTIONS 411 [aux_sym_ppUsesBlock_token1]; ACTIONS 11124 [aux_sym_ppUsesBlock_token2;
   aux_sym_ppUsesBlock_token3]; ACTIONS 61 [sym_kAdd; sym_kSub]; ACTIONS 63 [sym_kAt];
   ACTIONS 65 [sym_kTrue; sym_kFalse]; ACTIONS 11066 [sym_labelNumber]; ACTIONS 3 [sym__space];
   ACTIONS 5 [sym_ppDirective]; ACTIONS 3 [sym_comment]; ACTIONS 65 [sym_ppFragmentExpr];
   ACTIONS 11114 [sym_ppFragmentStmt]; ACTIONS 49 [sym__literalStringMultiline];
   ACTIONS 11068 [sym_identifier]; ACTIONS 73 [sym_kSpecialize]; ACTIONS 11070 [sym_kAsm];
   ACTIONS 11072 [sym_kBegin]; ACTIONS 11074 [sym_kCase]; ACTIONS 11076 [sym_kConst];
   ACTIONS 11078 [sym_kFor]; ACTIONS 11080 [sym_kFunction]; ACTIONS 11082 [sym_kGoto];
   ACTIONS 11084 [sym_kIf]; ACTIONS 105 [sym_kInherited]; ACTIONS 65 [sym_kNil];
   ACTIONS 63 [sym_kNot]; ACTIONS 11080 [sym_kProcedure]; ACTIONS 11086 [sym_kRaise];
   ACTIONS 11088 [sym_kRepeat]; ACTIONS 117 [sym_kString]; ACTIONS 11090 [sym_kTry];
   ACTIONS 11092 [sym_kVar]; ACTIONS 11094 [sym_kWhile]; ACTIONS 11096 [sym_kWith]].

(** State 1394. *)
Definition ts_parse_table_1394 : parse_row :=
  [STATE 5914 [sym_if]; STATE 1394 [sym_ifElse; sym_while; sym_repeat; sym_for; sym_foreach;
   sym_try; sym_case; sym_block; sym_asm; sym_with; sym_raise; sym_statement; sym_goto;
   sym__statement]; STATE 14947 [sym_assignment]; STATE 11829 [sym_varAssignDef];
   STATE 14947 [sym_varDef; sym_constDef]; STATE 1394 [sym_label]; STATE 8450 [sym__expr;
   sym_exprConditional]; STATE 7765 [sym__ref; sym_lambda; sym_inherited; sym_exprDot;
   sym_exprDeref; sym_exprAs; sym_exprTpl; sym_exprSubscript; sym_exprCall];
   STATE 8450 [sym_exprBinary; sym_exprUnary]; STATE 7765 [sym_exprParens; sym_exprBrackets;
   sym__literal; sym_literalString]; STATE 6994 [sym__literalString; sym_literalChar];
   STATE 7765 [sym_literalNumber]; STATE 7888 [sym__literalInt; sym__literalFloat];
   STATE 1384 [sym__ppIf]; STATE 1394 [sym__ppStatementBlock];
   STATE 6994 [aux_sym_literalString_repeat1]; STATE 1394 [aux_sym__ppStatementBlock_repeat1];
   ACTIONS 11126 [anon_sym_SEMI]; ACTIONS 11129 [anon_sym_COMMA];
   ACTIONS 11132 [anon_sym_LBRACK]; ACTIONS 11135 [anon_sym_LPAREN];
   ACTIONS 11138 [aux_sym__literalString_token1]; ACTIONS 11141 [anon_sym_POUND];
   ACTIONS 11144 [aux_sym__literalInt_token1]; ACTIONS 11147 [aux_sym__literalInt_token2;
   aux_sym__literalInt_token3]; ACTIONS 11144 [aux_sym__literalFloat_token1];
   ACTIONS 11150 [aux_sym_ppUsesBlock_token1]; ACTIONS 11153 [aux_sym_ppUsesBlock_token2;
   aux_sym_ppUsesBlock_token3]; ACTIONS 11155 [sym_kAdd; sym_kSub]; ACTIONS 11158 [sym_kAt];
   ACTIONS 11161 [sym_kTrue; sym_kFalse]; ACTIONS 11164 [sym_labelNumber];
   ACTIONS 3 [sym__space]; ACTIONS 5 [sym_ppDirective]; ACTIONS 3 [sym_comment];
   ACTIONS 11161 [sym_ppFragmentExpr]; ACTIONS 11129 [sym_ppFragmentStmt];
   ACTIONS 11138 [sym__literalStringMultiline]; ACTIONS 11167 [sym_identifier];
   ACTIONS 11170 [sym_kSpecialize]; ACTIONS 11173 [sym_kAsm]; ACTIONS 11176 [sym_kBegin];
   ACTIONS 11179 [sym_kCase]; ACTIONS 11182 [sym_kConst]; ACTIONS 11185 [sym_kFor];
   ACTIONS 11188 [sym_kFunction]; ACTIONS 11191 [sym_kGoto]; ACTIONS 11194 [sym_kIf];
   ACTIONS 11197 [sym_kInherited]; ACTIONS 11161 [sym_kNil]; ACTIONS 11158 [sym_kNot];
   ACTIONS 11188 [sym_kProcedure]; ACTIONS 11200 [sym_kRaise]; ACTIONS 11203 [sym_kRepeat];
   ACTIONS 11206 [sym_kString]; ACTIONS 11209 [sym_kTry]; ACTIONS 11212 [sym_kVar];
   ACTIONS 11215 [sym_kWhile]; ACTIONS 11218 [sym_kWith]].

(** State 1395. *)
Definition ts_parse_table_1395 : parse_row :=
  [STATE 6451 [sym_if]; STATE 1395 [sym_ifElse; sym_while; sym_repeat; sym_for; sym_foreach;
   sym_try; sym_case; sym_block; sym_asm; sym_with; sym_raise; sym_statement; sym_goto;
   sym__statement]; STATE 15358 [sym_assignment]; STATE 11829 [sym_varAssignDef];
   STATE 15358 [sym_varDef; sym_constDef]; STATE 1395 [sym_label]; STATE 8210 [sym__expr;
   sym_exprConditional]; STATE 7765 [sym__ref; sym_lambda; sym_inherited; sym_exprDot;
   sym_exprDeref; sym_exprAs; sym_exprTpl; sym_exprSubscript; sym_exprCall];
   STATE 8210 [sym_exprBinary; sym_exprUnary]; STATE 7765 [sym_exprParens; sym_exprBrackets;
   sym__literal; sym_literalString]; STATE 6994 [sym__literalString; sym_literalChar];
   STATE 7765 [sym_literalNumber]; STATE 7888 [sym__literalInt; sym__literalFloat];
   STATE 1391 [sym__ppIf]; STATE 1395 [sym__ppStatementBlock; aux_sym__statementsTr_repeat1];
   STATE 6994 [aux_sym_literalString_repeat1]; ACTIONS 11221 [anon_sym_SEMI];
   ACTIONS 11224 [anon_sym_LBRACK]; ACTIONS 11227 [anon_sym_LPAREN];
   ACTIONS 11230 [aux_sym__literalString_token1]; ACTIONS 11233 [anon_sym_POUND];
   ACTIONS 11236 [aux_sym__literalInt_token1]; ACTIONS 11239 [aux_sym__literalInt_token2;
   aux_sym__literalInt_token3]; ACTIONS 11236 [aux_sym__literalFloat_token1];
   ACTIONS 11242 [aux_sym_ppUsesBlock_token1]; ACTIONS 11245 [sym_kAdd; sym_kSub];
   ACTIONS 11248 [sym_kAt]; ACTIONS 11251 [sym_kTrue; sym_kFalse];
   ACTIONS 11254 [sym_labelNumber]; ACTIONS 3 [sym__space]; ACTIONS 5 [sym_ppDirective];
   ACTIONS 3 [sym_comment]; ACTIONS 11251 [sym_ppFragmentExpr];
   ACTIONS 11221 [sym_ppFragmentStmt]; ACTIONS 11230 [sym__literalStringMultiline];
   ACTIONS 11257 [sym_identifier]; ACTIONS 11260 [sym_kSpecialize]; ACTIONS 11263 [sym_kAsm];
   ACTIONS 11266 [sym_kBegin]; ACTIONS 11269 [sym_kCase]; ACTIONS 11272 [sym_kConst];
   ACTIONS 11275 [sym_kFor]; ACTIONS 11278 [sym_kFunction]; ACTIONS 11281 [sym_kGoto];
   ACTIONS 11284 [sym_kIf]; ACTIONS 11287 [sym_kInherited]; ACTIONS 11251 [sym_kNil];
   ACTIONS 11248 [sym_kNot]; ACTIONS 11278 [sym_kProcedure]; ACTIONS 11290 [sym_kRaise];
   ACTIONS 11293 [sym_kRepeat]; ACTIONS 11296 [sym_kString]; ACTIONS 11299 [sym_kTry];
   ACTIONS 11302 [sym_kVar]; ACTIONS 11305 [sym_kWhile]; ACTIONS 11308 [sym_kWith]].

(** State 1396. *)
Definition ts_parse_table_1396 : parse_row :=
  [ACTIONS 11311 [anon_sym_SEMI]; ACTIONS 11313 [anon_sym_LBRACK];
   ACTIONS 11316 [anon_sym_LPAREN]; ACTIONS 11311 [anon_sym_DOT]; ACTIONS 11316 [sym_kLt];
   ACTIONS 11311 [sym_kEq; sym_kNeq]; ACTIONS 11316 [sym_kGt]; ACTIONS 11311 [sym_kLte;
   sym_kGte]; ACTIONS 11316 [sym_kAdd; sym_kSub; sym_kMul; sym_kFdiv]; ACTIONS 11311 [sym_kHat;
   sym_kAssign; sym_kAssignAdd; sym_kAssignSub; sym_kAssignMul; sym_kAssignDiv];
   ACTIONS 3 [sym__space]; ACTIONS 5 [sym_ppDirective]; ACTIONS 3 [sym_comment];
   ACTIONS 11318 [sym_identifier; sym_kDefault; sym_kNodefault; sym_kDispId; sym_kGeneric;
   sym_kOperator; sym_kPublic; sym_kStatic; sym_kVirtual; sym_kAbstract; sym_kDynamic;
   sym_kOverride; sym_kOverload; sym_kReintroduce; sym_kStdcall; sym_kCdecl; sym_kCppdecl;
   sym_kPascal; sym_kRegister; sym_kMwpascal; sym_kMessage; sym_kDeprecated; sym_kExperimental;
   sym_kPlatform; sym_kUnimplemented; sym_kCvar; sym_kExport; sym_kFar; sym_kNear; sym_kSafecall;
   sym_kAssembler; sym_kNostackframe; sym_kInterrupt; sym_kNoreturn; sym_kIocheck; sym_kLocal;
   sym_kHardfloat; sym_kSoftfloat; sym_kMs_abi_default; sym_kMs_abi_cdecl; sym_kSaveregisters;
   sym_kSysv_abi_default; sym_kSysv_abi_cdecl; sym_kVectorcall; sym_kVarargs; sym_kWinapi;
   sym_kAlias]; ACTIONS 11311 [sym_kAnd; sym_kAs]; ACTIONS 11318 [sym_kClass; sym_kConstructor;
   sym_kDestructor]; ACTIONS 11311 [sym_kDiv]; ACTIONS 11318 [sym_kFunction];
   ACTIONS 11311 [sym_kIn; sym_kIs; sym_kMod; sym_kNot; sym_kOr]; ACTIONS 11318 [sym_kProcedure;
   sym_kProperty]; ACTIONS 11311 [sym_kShl; sym_kShr; sym_kXor]].

(** State 1397. *)
Definition ts_parse_table_1397 : parse_row :=
  [STATE 6463 [sym_if]; STATE 6475 [sym_ifElse; sym_while; sym_repeat; sym_for; sym_foreach;
   sym_try; sym_case; sym_block; sym_asm; sym_with; sym_raise; sym_statement; sym_goto];
   STATE 15044 [sym_labeledStatement]; STATE 6475 [sym__statement]; STATE 14997 [sym_assignment];
   STATE 11829 [sym_varAssignDef]; STATE 14997 [sym_varDef; sym_constDef];
   STATE 1459 [sym_label]; STATE 8298 [sym__expr; sym_exprConditional]; STATE 7765 [sym__ref;
   sym_lambda; sym_inherited; sym_exprDot; sym_exprDeref; sym_exprAs; sym_exprTpl;
   sym_exprSubscript; sym_exprCall]; STATE 8298 [sym_exprBinary; sym_exprUnary];
   STATE 7765 [sym_exprParens; sym_exprBrackets; sym__literal; sym_literalString];
   STATE 6994 [sym__literalString; sym_literalChar]; STATE 7765 [sym_literalNumber];
   STATE 7888 [sym__literalInt; sym__literalFloat]; STATE 1437 [aux_sym_exceptionElse_repeat1];
   STATE 6994 [aux_sym_literalString_repeat1]; ACTIONS 11320 [anon_sym_SEMI];
   ACTIONS 11060 [anon_sym_LBRACK]; ACTIONS 47 [anon_sym_LPAREN];
   ACTIONS 49 [aux_sym__literalString_token1]; ACTIONS 51 [anon_sym_POUND];
   ACTIONS 53 [aux_sym__literalInt_token1]; ACTIONS 55 [aux_sym__literalInt_token2;
   aux_sym__literalInt_token3]; ACTIONS 53 [aux_sym__literalFloat_token1]; ACTIONS 61 [sym_kAdd;
   sym_kSub]; ACTIONS 63 [sym_kAt]; ACTIONS 65 [sym_kTrue; sym_kFalse];
   ACTIONS 11322 [sym_labelNumber]; ACTIONS 3 [sym__space]; ACTIONS 5 [sym_ppDirective];
   ACTIONS 3 [sym_comment]; ACTIONS 65 [sym_ppFragmentExpr];
   ACTIONS 49 [sym__literalStringMultiline]; ACTIONS 11324 [sym_identifier];
   ACTIONS 73 [sym_kSpecialize]; ACTIONS 11326 [sym_kAsm]; ACTIONS 11328 [sym_kBegin];
   ACTIONS 11330 [sym_kCase]; ACTIONS 11076 [sym_kConst]; ACTIONS 11332 [sym_kFor];
   ACTIONS 11080 [sym_kFunction]; ACTIONS 11334 [sym_kGoto]; ACTIONS 11336 [sym_kIf];
   ACTIONS 105 [sym_kInherited]; ACTIONS 65 [sym_kNil]; ACTIONS 63 [sym_kNot];
   ACTIONS 11080 [sym_kProcedure]; ACTIONS 11338 [sym_kRaise]; ACTIONS 11340 [sym_kRepeat];
   ACTIONS 117 [sym_kString]; ACTIONS 11342 [sym_kTry]; ACTIONS 11092 [sym_kVar];
   ACTIONS 11344 [sym_kWhile]; ACTIONS 11346 [sym_kWith]].

(** State 1398. *)
Definition ts_parse_table_1398 : parse_row :=
  [STATE 6463 [sym_if]; STATE 6593 [sym_ifElse; sym_while; sym_repeat; sym_for; sym_foreach;
   sym_try; sym_case; sym_block; sym_asm; sym_with; sym_raise; sym_statement; sym_goto];
   STATE 15587 [sym_labeledStatement]; STATE 6593 [sym__statement]; STATE 14997 [sym_assignment];
   STATE 11829 [sym_varAssignDef]; STATE 14997 [sym_varDef; sym_constDef];
   STATE 1459 [sym_label]; STATE 8298 [sym__expr; sym_exprConditional]; STATE 7765 [sym__ref;
   sym_lambda; sym_inherited; sym_exprDot; sym_exprDeref; sym_exprAs; sym_exprTpl;
   sym_exprSubscript; sym_exprCall]; STATE 8298 [sym_exprBinary; sym_exprUnary];
   STATE 7765 [sym_exprParens; sym_exprBrackets; sym__literal; sym_literalString];
   STATE 6994 [sym__literalString; sym_literalChar]; STATE 7765 [sym_literalNumber];
   STATE 7888 [sym__literalInt; sym__literalFloat]; STATE 1397 [aux_sym_exceptionElse_repeat1];
   STATE 6994 [aux_sym_literalString_repeat1]; ACTIONS 11348 [anon_sym_SEMI];
   ACTIONS 11060 [anon_sym_LBRACK]; ACTIONS 47 [anon_sym_LPAREN];
   ACTIONS 49 [aux_sym__literalString_token1]; ACTIONS 51 [anon_sym_POUND];
   ACTIONS 53 [aux_sym__literalInt_token1]; ACTIONS 55 [aux_sym__literalInt_token2;
   aux_sym__literalInt_token3]; ACTIONS 53 [aux_sym__literalFloat_token1]; ACTIONS 61 [sym_kAdd;
   sym_kSub]; ACTIONS 63 [sym_kAt]; ACTIONS 65 [sym_kTrue; sym_kFalse];
   ACTIONS 11322 [sym_labelNumber]; ACTIONS 3 [sym__space]; ACTIONS 5 [sym_ppDirective];
   ACTIONS 3 [sym_comment]; ACTIONS 65 [sym_ppFragmentExpr];
   ACTIONS 49 [sym__literalStringMultiline]; ACTIONS 11324 [sym_identifier];
   ACTIONS 73 [sym_kSpecialize]; ACTIONS 11326 [sym_kAsm]; ACTIONS 11328 [sym_kBegin];
   ACTIONS 11330 [sym_kCase]; ACTIONS 11076 [sym_kConst]; ACTIONS 11332 [sym_kFor];
   ACTIONS 11080 [sym_kFunction]; ACTIONS 11334 [sym_kGoto]; ACTIONS 11336 [sym_kIf];
   ACTIONS 105 [sym_kInherited]; ACTIONS 65 [sym_kNil]; ACTIONS 63 [sym_kNot];
   ACTIONS 11080 [sym_kProcedure]; ACTIONS 11338 [sym_kRaise]; ACTIONS 11340 [sym_kRepeat];
   ACTIONS 117 [sym_kString]; ACTIONS 11342 [sym_kTry]; ACTIONS 11092 [sym_kVar];
   ACTIONS 11344 [sym_kWhile]; ACTIONS 11346 [sym_kWith]].

(** State 1399. *)
Definition ts_parse_table_1399 : parse_row :=
  [STATE 5914 [sym_if]; STATE 5999 [sym_ifElse; sym_while; sym_repeat; sym_for; sym_foreach;
   sym_try; sym_case; sym_block; sym_asm; sym_with; sym_raise; sym_statement; sym_goto;
   sym_labeledStatement; sym__statement]; STATE 14947 [sym_assignment];
   STATE 11829 [sym_varAssignDef]; STATE 14947 [sym_varDef; sym_constDef];
   STATE 1466 [sym_label]; STATE 8450 [sym__expr; sym_exprConditional]; STATE 7765 [sym__ref;
   sym_lambda; sym_inherited; sym_exprDot; sym_exprDeref; sym_exprAs; sym_exprTpl;
   sym_exprSubscript; sym_exprCall]; STATE 8450 [sym_exprBinary; sym_exprUnary];
   STATE 7765 [sym_exprParens; sym_exprBrackets; sym__literal; sym_literalString];
   STATE 6994 [sym__literalString; sym_literalChar]; STATE 7765 [sym_literalNumber];
   STATE 7888 [sym__literalInt; sym__literalFloat]; STATE 6994 [aux_sym_literalString_repeat1];
   ACTIONS 10648 [anon_sym_SEMI]; ACTIONS 11060 [anon_sym_LBRACK]; ACTIONS 47 [anon_sym_LPAREN];
   ACTIONS 49 [aux_sym__literalString_token1]; ACTIONS 51 [anon_sym_POUND];
   ACTIONS 53 [aux_sym__literalInt_token1]; ACTIONS 55 [aux_sym__literalInt_token2;
   aux_sym__literalInt_token3]; ACTIONS 53 [aux_sym__literalFloat_token1]; ACTIONS 61 [sym_kAdd;
   sym_kSub]; ACTIONS 63 [sym_kAt]; ACTIONS 65 [sym_kTrue; sym_kFalse];
   ACTIONS 11322 [sym_labelNumber]; ACTIONS 3 [sym__space]; ACTIONS 5 [sym_ppDirective];
   ACTIONS 3 [sym_comment]; ACTIONS 65 [sym_ppFragmentExpr];
   ACTIONS 49 [sym__literalStringMultiline]; ACTIONS 11324 [sym_identifier];
   ACTIONS 73 [sym_kSpecialize]; ACTIONS 11070 [sym_kAsm]; ACTIONS 11072 [sym_kBegin];
   ACTIONS 11074 [sym_kCase]; ACTIONS 11076 [sym_kConst]; ACTIONS 11078 [sym_kFor];
   ACTIONS 11080 [sym_kFunction]; ACTIONS 11082 [sym_kGoto]; ACTIONS 11084 [sym_kIf];
   ACTIONS 105 [sym_kInherited]; ACTIONS 65 [sym_kNil]; ACTIONS 63 [sym_kNot];
   ACTIONS 11080 [sym_kProcedure]; ACTIONS 11086 [sym_kRaise]; ACTIONS 11088 [sym_kRepeat];
   ACTIONS 117 [sym_kString]; ACTIONS 11090 [sym_kTry]; ACTIONS 11092 [sym_kVar];
   ACTIONS 11094 [sym_kWhile]; ACTIONS 11096 [sym_kWith]].

(** State 1400. *)
Definition ts_parse_table_1400 : parse_row :=
  [STATE 5914 [sym_if]; STATE 5918 [sym_ifElse; sym_while; sym_repeat; sym_for; sym_foreach;
   sym_try; sym_case; sym_block; sym_asm; sym_with; sym_raise; sym_statement; sym_goto;
   sym_labeledStatement; sym__statement]; STATE 14947 [sym_assignment];
   STATE 11829 [sym_varAssignDef]; STATE 14947 [sym_varDef; sym_constDef];
   STATE 1466 [sym_label]; STATE 8450 [sym__expr; sym_exprConditional]; STATE 7765 [sym__ref;
   sym_lambda; sym_inherited; sym_exprDot; sym_exprDeref; sym_exprAs; sym_exprTpl;
   sym_exprSubscript; sym_exprCall]; STATE 8450 [sym_exprBinary; sym_exprUnary];
   STATE 7765 [sym_exprParens; sym_exprBrackets; sym__literal; sym_literalString];
   STATE 6994 [sym__literalString; sym_literalChar]; STATE 7765 [sym_literalNumber];
   STATE 7888 [sym__literalInt; sym__literalFloat]; STATE 6994 [aux_sym_literalString_repeat1];
   ACTIONS 10656 [anon_sym_SEMI]; ACTIONS 11060 [anon_sym_LBRACK]; ACTIONS 47 [anon_sym_LPAREN];
   ACTIONS 49 [aux_sym__literalString_token1]; ACTIONS 51 [anon_sym_POUND];
   ACTIONS 53 [aux_sym__literalInt_token1]; ACTIONS 55 [aux_sym__literalInt_token2;
   aux_sym__literalInt_token3]; ACTIONS 53 [aux_sym__literalFloat_token1]; ACTIONS 61 [sym_kAdd;
   sym_kSub]; ACTIONS 63 [sym_kAt]; ACTIONS 65 [sym_kTrue; sym_kFalse];
   ACTIONS 11322 [sym_labelNumber]; ACTIONS 3 [sym__space]; ACTIONS 5 [sym_ppDirective];
   ACTIONS 3 [sym_comment]; ACTIONS 65 [sym_ppFragmentExpr];
   ACTIONS 49 [sym__literalStringMultiline]; ACTIONS 11324 [sym_identifier];
   ACTIONS 73 [sym_kSpecialize]; ACTIONS 11070 [sym_kAsm]; ACTIONS 11072 [sym_kBegin];
   ACTIONS 11074 [sym_kCase]; ACTIONS 11076 [sym_kConst]; ACTIONS 11078 [sym_kFor];
   ACTIONS 11080 [sym_kFunction]; ACTIONS 11082 [sym_kGoto]; ACTIONS 11084 [sym_kIf];
   ACTIONS 105 [sym_kInherited]; ACTIONS 65 [sym_kNil]; ACTIONS 63 [sym_kNot];
   ACTIONS 11080 [sym_kProcedure]; ACTIONS 11086 [sym_kRaise]; ACTIONS 11088 [sym_kRepeat];
   ACTIONS 117 [sym_kString]; ACTIONS 11090 [sym_kTry]; ACTIONS 11092 [sym_kVar];
   ACTIONS 11094 [sym_kWhile]; ACTIONS 11096 [sym_kWith]].

(** State 1401. *)
Definition ts_parse_table_1401 : parse_row :=
  [STATE 6463 [sym_if]; STATE 6587 [sym_ifElse; sym_while; sym_repeat; sym_for; sym_foreach;
   sym_try; sym_case; sym_block; sym_asm; sym_with; sym_raise; sym_statement; sym_goto;
   sym_labeledStatement; sym__statement]; STATE 14997 [sym_assignment];
   STATE 11829 [sym_varAssignDef]; STATE 14997 [sym_varDef; sym_constDef];
   STATE 1420 [sym_label]; STATE 8298 [sym__expr; sym_exprConditional]; STATE 7765 [sym__ref;
   sym_lambda; sym_inherited; sym_exprDot; sym_exprDeref; sym_exprAs; sym_exprTpl;
   sym_exprSubscript; sym_exprCall]; STATE 8298 [sym_exprBinary; sym_exprUnary];
   STATE 7765 [sym_exprParens; sym_exprBrackets; sym__literal; sym_literalString];
   STATE 6994 [sym__literalString; sym_literalChar]; STATE 7765 [sym_literalNumber];
   STATE 7888 [sym__literalInt; sym__literalFloat]; STATE 6994 [aux_sym_literalString_repeat1];
   ACTIONS 10462 [anon_sym_SEMI]; ACTIONS 11060 [anon_sym_LBRACK]; ACTIONS 47 [anon_sym_LPAREN];
   ACTIONS 49 [aux_sym__literalString_token1]; ACTIONS 51 [anon_sym_POUND];
   ACTIONS 53 [aux_sym__literalInt_token1]; ACTIONS 55 [aux_sym__literalInt_token2;
   aux_sym__literalInt_token3]; ACTIONS 53 [aux_sym__literalFloat_token1]; ACTIONS 61 [sym_kAdd;
   sym_kSub]; ACTIONS 63 [sym_kAt]; ACTIONS 65 [sym_kTrue; sym_kFalse];
   ACTIONS 11322 [sym_labelNumber]; ACTIONS 3 [sym__space]; ACTIONS 5 [sym_ppDirective];
   ACTIONS 3 [sym_comment]; ACTIONS 65 [sym_ppFragmentExpr];
   ACTIONS 49 [sym__literalStringMultiline]; ACTIONS 11324 [sym_identifier];
   ACTIONS 73 [sym_kSpecialize]; ACTIONS 11326 [sym_kAsm]; ACTIONS 11328 [sym_kBegin];
   ACTIONS 11330 [sym_kCase]; ACTIONS 11076 [sym_kConst]; ACTIONS 11332 [sym_kFor];
   ACTIONS 11080 [sym_kFunction]; ACTIONS 11334 [sym_kGoto]; ACTIONS 11336 [sym_kIf];
   ACTIONS 105 [sym_kInherited]; ACTIONS 65 [sym_kNil]; ACTIONS 63 [sym_kNot];
   ACTIONS 11080 [sym_kProcedure]; ACTIONS 11338 [sym_kRaise]; ACTIONS 11340 [sym_kRepeat];
   ACTIONS 117 [sym_kString]; ACTIONS 11342 [sym_kTry]; ACTIONS 11092 [sym_kVar];
   ACTIONS 11344 [sym_kWhile]; ACTIONS 11346 [sym_kWith]].

(** State 1402. *)
Definition ts_parse_table_1402 : parse_row :=
  [STATE 6451 [sym_if]; STATE 6369 [sym_ifElse; sym_while; sym_repeat; sym_for; sym_foreach;
   sym_try; sym_case; sym_block; sym_asm; sym_with; sym_raise; sym_statement; sym_goto;
   sym_labeledStatement; sym__statement]; STATE 15358 [sym_assignment];
   STATE 11829 [sym_varAssignDef]; STATE 15358 [sym_varDef; sym_constDef];
   STATE 1415 [sym_label]; STATE 8210 [sym__expr; sym_exprConditional]; STATE 7765 [sym__ref;
   sym_lambda; sym_inherited; sym_exprDot; sym_exprDeref; sym_exprAs; sym_exprTpl;
   sym_exprSubscript; sym_exprCall]; STATE 8210 [sym_exprBinary; sym_exprUnary];
   STATE 7765 [sym_exprParens; sym_exprBrackets; sym__literal; sym_literalString];
   STATE 6994 [sym__literalString; sym_literalChar]; STATE 7765 [sym_literalNumber];
   STATE 7888 [sym__literalInt; sym__literalFloat]; STATE 6994 [aux_sym_literalString_repeat1];
   ACTIONS 10666 [anon_sym_SEMI]; ACTIONS 11060 [anon_sym_LBRACK]; ACTIONS 47 [anon_sym_LPAREN];
   ACTIONS 49 [aux_sym__literalString_token1]; ACTIONS 51 [anon_sym_POUND];
   ACTIONS 53 [aux_sym__literalInt_token1]; ACTIONS 55 [aux_sym__literalInt_token2;
   aux_sym__literalInt_token3]; ACTIONS 53 [aux_sym__literalFloat_token1]; ACTIONS 61 [sym_kAdd;
   sym_kSub]; ACTIONS 63 [sym_kAt]; ACTIONS 65 [sym_kTrue; sym_kFalse];
   ACTIONS 11322 [sym_labelNumber]; ACTIONS 3 [sym__space]; ACTIONS 5 [sym_ppDirective];
   ACTIONS 3 [sym_comment]; ACTIONS 65 [sym_ppFragmentExpr];
   ACTIONS 49 [sym__literalStringMultiline]; ACTIONS 11324 [sym_identifier];
   ACTIONS 73 [sym_kSpecialize]; ACTIONS 11350 [sym_kAsm]; ACTIONS 11352 [sym_kBegin];
   ACTIONS 11354 [sym_kCase]; ACTIONS 11076 [sym_kConst]; ACTIONS 11356 [sym_kFor];
   ACTIONS 11080 [sym_kFunction]; ACTIONS 11358 [sym_kGoto]; ACTIONS 11360 [sym_kIf];
   ACTIONS 105 [sym_kInherited]; ACTIONS 65 [sym_kNil]; ACTIONS 63 [sym_kNot];
   ACTIONS 11080 [sym_kProcedure]; ACTIONS 11362 [sym_kRaise]; ACTIONS 11364 [sym_kRepeat];
   ACTIONS 117 [sym_kString]; ACTIONS 11366 [sym_kTry]; ACTIONS 11092 [sym_kVar];
   ACTIONS 11368 [sym_kWhile]; ACTIONS 11370 [sym_kWith]].

(** State 1403. *)
Definition ts_parse_table_1403 : parse_row :=
  [STATE 6463 [sym_if]; STATE 6517 [sym_ifElse; sym_while; sym_repeat; sym_for; sym_foreach;
   sym_try; sym_case; sym_block; sym_asm; sym_with; sym_raise; sym_statement; sym_goto;
   sym_labeledStatement; sym__statement]; STATE 14997 [sym_assignment];
   STATE 11829 [sym_varAssignDef]; STATE 14997 [sym_varDef; sym_constDef];
   STATE 1420 [sym_label]; STATE 8298 [sym__expr; sym_exprConditional]; STATE 7765 [sym__ref;
   sym_lambda; sym_inherited; sym_exprDot; sym_exprDeref; sym_exprAs; sym_exprTpl;
   sym_exprSubscript; sym_exprCall]; STATE 8298 [sym_exprBinary; sym_exprUnary];
   STATE 7765 [sym_exprParens; sym_exprBrackets; sym__literal; sym_literalString];
   STATE 6994 [sym__literalString; sym_literalChar]; STATE 7765 [sym_literalNumber];
   STATE 7888 [sym__literalInt; sym__literalFloat]; STATE 6994 [aux_sym_literalString_repeat1];
   ACTIONS 10066 [anon_sym_SEMI]; ACTIONS 11060 [anon_sym_LBRACK]; ACTIONS 47 [anon_sym_LPAREN];
   ACTIONS 49 [aux_sym__literalString_token1]; ACTIONS 51 [anon_sym_POUND];
   ACTIONS 53 [aux_sym__literalInt_token1]; ACTIONS 55 [aux_sym__literalInt_token2;
   aux_sym__literalInt_token3]; ACTIONS 53 [aux_sym__literalFloat_token1]; ACTIONS 61 [sym_kAdd;
   sym_kSub]; ACTIONS 63 [sym_kAt]; ACTIONS 65 [sym_kTrue; sym_kFalse];
   ACTIONS 11322 [sym_labelNumber]; ACTIONS 3 [sym__space]; ACTIONS 5 [sym_ppDirective];
   ACTIONS 3 [sym_comment]; ACTIONS 65 [sym_ppFragmentExpr];
   ACTIONS 49 [sym__literalStringMultiline]; ACTIONS 11324 [sym_identifier];
   ACTIONS 73 [sym_kSpecialize]; ACTIONS 11326 [sym_kAsm]; ACTIONS 11328 [sym_kBegin];
   ACTIONS 11330 [sym_kCase]; ACTIONS 11076 [sym_kConst]; ACTIONS 11332 [sym_kFor];
   ACTIONS 11080 [sym_kFunction]; ACTIONS 11334 [sym_kGoto]; ACTIONS 11336 [sym_kIf];
   ACTIONS 105 [sym_kInherited]; ACTIONS 65 [sym_kNil]; ACTIONS 63 [sym_kNot];
   ACTIONS 11080 [sym_kProcedure]; ACTIONS 11338 [sym_kRaise]; ACTIONS 11340 [sym_kRepeat];
   ACTIONS 117 [sym_kString]; ACTIONS 11342 [sym_kTry]; ACTIONS 11092 [sym_kVar];
   ACTIONS 11344 [sym_kWhile]; ACTIONS 11346 [sym_kWith]].

(** State 1404. *)
Definition ts_parse_table_1404 : parse_row :=
  [STATE 6451 [sym_if]; STATE 6382 [sym_ifElse; sym_while; sym_repeat; sym_for; sym_foreach;
   sym_try; sym_case; sym_block; sym_asm; sym_with; sym_raise; sym_statement; sym_goto;
   sym_labeledStatement; sym__statement]; STATE 15358 [sym_assignment];
   STATE 11829 [sym_varAssignDef]; STATE 15358 [sym_varDef; sym_constDef];
   STATE 1415 [sym_label]; STATE 8210 [sym__expr; sym_exprConditional]; STATE 7765 [sym__ref;
   sym_lambda; sym_inherited; sym_exprDot; sym_exprDeref; sym_exprAs; sym_exprTpl;
   sym_exprSubscript; sym_exprCall]; STATE 8210 [sym_exprBinary; sym_exprUnary];
   STATE 7765 [sym_exprParens; sym_exprBrackets; sym__literal; sym_literalString];
   STATE 6994 [sym__literalString; sym_literalChar]; STATE 7765 [sym_literalNumber];
   STATE 7888 [sym__literalInt; sym__literalFloat]; STATE 6994 [aux_sym_literalString_repeat1];
   ACTIONS 10668 [anon_sym_SEMI]; ACTIONS 11060 [anon_sym_LBRACK]; ACTIONS 47 [anon_sym_LPAREN];
   ACTIONS 49 [aux_sym__literalString_token1]; ACTIONS 51 [anon_sym_POUND];
   ACTIONS 53 [aux_sym__literalInt_token1]; ACTIONS 55 [aux_sym__literalInt_token2;
   aux_sym__literalInt_token3]; ACTIONS 53 [aux_sym__literalFloat_token1]; ACTIONS 61 [sym_kAdd;
   sym_kSub]; ACTIONS 63 [sym_kAt]; ACTIONS 65 [sym_kTrue; sym_kFalse];
   ACTIONS 11322 [sym_labelNumber]; ACTIONS 3 [sym__space]; ACTIONS 5 [sym_ppDirective];
   ACTIONS 3 [sym_comment]; ACTIONS 65 [sym_ppFragmentExpr];
   ACTIONS 49 [sym__literalStringMultiline]; ACTIONS 11324 [sym_identifier];
   ACTIONS 73 [sym_kSpecialize]; ACTIONS 11350 [sym_kAsm]; ACTIONS 11352 [sym_kBegin];
   ACTIONS 11354 [sym_kCase]; ACTIONS 11076 [sym_kConst]; ACTIONS 11356 [sym_kFor];
   ACTIONS 11080 [sym_kFunction]; ACTIONS 11358 [sym_kGoto]; ACTIONS 11360 [sym_kIf];
   ACTIONS 105 [sym_kInherited]; ACTIONS 65 [sym_kNil]; ACTIONS 63 [sym_kNot];
   ACTIONS 11080 [sym_kProcedure]; ACTIONS 11362 [sym_kRaise]; ACTIONS 11364 [sym_kRepeat];
   ACTIONS 117 [sym_kString]; ACTIONS 11366 [sym_kTry]; ACTIONS 11092 [sym_kVar];
   ACTIONS 11368 [sym_kWhile]; ACTIONS 11370 [sym_kWith]].

(** State 1405. *)
Definition ts_parse_table_1405 : parse_row :=
  [STATE 6747 [sym_if]; STATE 6702 [sym_ifElse; sym_while; sym_repeat; sym_for; sym_foreach;
   sym_try; sym_case; sym_block; sym_asm; sym_with; sym_raise; sym_statement; sym_goto;
   sym__statement]; STATE 15181 [sym_assignment]; STATE 11829 [sym_varAssignDef];
   STATE 15181 [sym_varDef; sym_constDef]; STATE 1432 [sym_label]; STATE 8409 [sym__expr;
   sym_exprConditional]; STATE 7765 [sym__ref; sym_lambda; sym_inherited; sym_exprDot;
   sym_exprDeref; sym_exprAs; sym_exprTpl; sym_exprSubscript; sym_exprCall];
   STATE 8409 [sym_exprBinary; sym_exprUnary]; STATE 7765 [sym_exprParens; sym_exprBrackets;
   sym__literal; sym_literalString]; STATE 6994 [sym__literalString; sym_literalChar];
   STATE 7765 [sym_literalNumber]; STATE 7888 [sym__literalInt; sym__literalFloat];
   STATE 1432 [aux_sym_labeledStatement_repeat1]; STATE 6994 [aux_sym_literalString_repeat1];
   ACTIONS 10738 [anon_sym_SEMI]; ACTIONS 11060 [anon_sym_LBRACK]; ACTIONS 47 [anon_sym_LPAREN];
   ACTIONS 49 [aux_sym__literalString_token1]; ACTIONS 51 [anon_sym_POUND];
   ACTIONS 53 [aux_sym__literalInt_token1]; ACTIONS 55 [aux_sym__literalInt_token2;
   aux_sym__literalInt_token3]; ACTIONS 53 [aux_sym__literalFloat_token1]; ACTIONS 61 [sym_kAdd;
   sym_kSub]; ACTIONS 63 [sym_kAt]; ACTIONS 65 [sym_kTrue; sym_kFalse];
   ACTIONS 11322 [sym_labelNumber]; ACTIONS 3 [sym__space]; ACTIONS 5 [sym_ppDirective];
   ACTIONS 3 [sym_comment]; ACTIONS 65 [sym_ppFragmentExpr];
   ACTIONS 49 [sym__literalStringMultiline]; ACTIONS 11324 [sym_identifier];
   ACTIONS 73 [sym_kSpecialize]; ACTIONS 11372 [sym_kAsm]; ACTIONS 11374 [sym_kBegin];
   ACTIONS 11376 [sym_kCase]; ACTIONS 11076 [sym_kConst]; ACTIONS 11378 [sym_kFor];
   ACTIONS 11080 [sym_kFunction]; ACTIONS 11380 [sym_kGoto]; ACTIONS 11382 [sym_kIf];
   ACTIONS 105 [sym_kInherited]; ACTIONS 65 [sym_kNil]; ACTIONS 63 [sym_kNot];
   ACTIONS 11080 [sym_kProcedure]; ACTIONS 11384 [sym_kRaise]; ACTIONS 11386 [sym_kRepeat];
   ACTIONS 117 [sym_kString]; ACTIONS 11388 [sym_kTry]; ACTIONS 11092 [sym_kVar];
   ACTIONS 11390 [sym_kWhile]; ACTIONS 11392 [sym_kWith]].

(** State 1406. *)
Definition ts_parse_table_1406 : parse_row :=
  [STATE 6463 [sym_if]; STATE 6553 [sym_ifElse; sym_while; sym_repeat; sym_for; sym_foreach;
   sym_try; sym_case; sym_block; sym_asm; sym_with; sym_raise; sym_statement; sym_goto;
   sym_labeledStatement; sym__statement]; STATE 14997 [sym_assignment];
   STATE 11829 [sym_varAssignDef]; STATE 14997 [sym_varDef; sym_constDef];
   STATE 1420 [sym_label]; STATE 8298 [sym__expr; sym_exprConditional]; STATE 7765 [sym__ref;
   sym_lambda; sym_inherited; sym_exprDot; sym_exprDeref; sym_exprAs; sym_exprTpl;
   sym_exprSubscript; sym_exprCall]; STATE 8298 [sym_exprBinary; sym_exprUnary];
   STATE 7765 [sym_exprParens; sym_exprBrackets; sym__literal; sym_literalString];
   STATE 6994 [sym__literalString; sym_literalChar]; STATE 7765 [sym_literalNumber];
   STATE 7888 [sym__literalInt; sym__literalFloat]; STATE 6994 [aux_sym_literalString_repeat1];
   ACTIONS 10096 [anon_sym_SEMI]; ACTIONS 11060 [anon_sym_LBRACK]; ACTIONS 47 [anon_sym_LPAREN];
   ACTIONS 49 [aux_sym__literalString_token1]; ACTIONS 51 [anon_sym_POUND];
   ACTIONS 53 [aux_sym__literalInt_token1]; ACTIONS 55 [aux_sym__literalInt_token2;
   aux_sym__literalInt_token3]; ACTIONS 53 [aux_sym__literalFloat_token1]; ACTIONS 61 [sym_kAdd;
   sym_kSub]; ACTIONS 63 [sym_kAt]; ACTIONS 65 [sym_kTrue; sym_kFalse];
   ACTIONS 11322 [sym_labelNumber]; ACTIONS 3 [sym__space]; ACTIONS 5 [sym_ppDirective];
   ACTIONS 3 [sym_comment]; ACTIONS 65 [sym_ppFragmentExpr];
   ACTIONS 49 [sym__literalStringMultiline]; ACTIONS 11324 [sym_identifier];
   ACTIONS 73 [sym_kSpecialize]; ACTIONS 11326 [sym_kAsm]; ACTIONS 11328 [sym_kBegin];
   ACTIONS 11330 [sym_kCase]; ACTIONS 11076 [sym_kConst]; ACTIONS 11332 [sym_kFor];
   ACTIONS 11080 [sym_kFunction]; ACTIONS 11334 [sym_kGoto]; ACTIONS 11336 [sym_kIf];
   ACTIONS 105 [sym_kInherited]; ACTIONS 65 [sym_kNil]; ACTIONS 63 [sym_kNot];
   ACTIONS 11080 [sym_kProcedure]; ACTIONS 11338 [sym_kRaise]; ACTIONS 11340 [sym_kRepeat];
   ACTIONS 117 [sym_kString]; ACTIONS 11342 [sym_kTry]; ACTIONS 11092 [sym_kVar];
   ACTIONS 11344 [sym_kWhile]; ACTIONS 11346 [sym_kWith]].

(** State 1407. *)
Definition ts_parse_table_1407 : parse_row :=
  [STATE 1310 [sym_if]; STATE 1317 [sym_ifElse; sym_while; sym_repeat; sym_for; sym_foreach;
   sym_try; sym_case; sym_block; sym_asm; sym_with; sym_raise; sym_statement; sym_goto;
   sym__statement]; STATE 15141 [sym_assignment]; STATE 11829 [sym_varAssignDef];
   STATE 15141 [sym_varDef; sym_constDef]; STATE 6374 [sym_label]; STATE 8220 [sym__expr;
   sym_exprConditional]; STATE 7765 [sym__ref; sym_lambda; sym_inherited; sym_exprDot;
   sym_exprDeref; sym_exprAs; sym_exprTpl; sym_exprSubscript; sym_exprCall];
   STATE 8220 [sym_exprBinary; sym_exprUnary]; STATE 7765 [sym_exprParens; sym_exprBrackets;
   sym__literal; sym_literalString]; STATE 6994 [sym__literalString; sym_literalChar];
   STATE 7765 [sym_literalNumber]; STATE 7888 [sym__literalInt; sym__literalFloat];
   STATE 6374 [aux_sym_labeledStatement_repeat1]; STATE 6994 [aux_sym_literalString_repeat1];
   ACTIONS 10730 [anon_sym_SEMI]; ACTIONS 11060 [anon_sym_LBRACK]; ACTIONS 47 [anon_sym_LPAREN];
   ACTIONS 49 [aux_sym__literalString_token1]; ACTIONS 51 [anon_sym_POUND];
   ACTIONS 53 [aux_sym__literalInt_token1]; ACTIONS 55 [aux_sym__literalInt_token2;
   aux_sym__literalInt_token3]; ACTIONS 53 [aux_sym__literalFloat_token1]; ACTIONS 61 [sym_kAdd;
   sym_kSub]; ACTIONS 63 [sym_kAt]; ACTIONS 65 [sym_kTrue; sym_kFalse];
   ACTIONS 11322 [sym_labelNumber]; ACTIONS 3 [sym__space]; ACTIONS 5 [sym_ppDirective];
   ACTIONS 3 [sym_comment]; ACTIONS 65 [sym_ppFragmentExpr];
   ACTIONS 49 [sym__literalStringMultiline]; ACTIONS 11324 [sym_identifier];
   ACTIONS 73 [sym_kSpecialize]; ACTIONS 83 [sym_kAsm]; ACTIONS 85 [sym_kBegin];
   ACTIONS 87 [sym_kCase]; ACTIONS 11076 [sym_kConst]; ACTIONS 97 [sym_kFor];
   ACTIONS 11080 [sym_kFunction]; ACTIONS 101 [sym_kGoto]; ACTIONS 103 [sym_kIf];
   ACTIONS 105 [sym_kInherited]; ACTIONS 65 [sym_kNil]; ACTIONS 63 [sym_kNot];
   ACTIONS 11080 [sym_kProcedure]; ACTIONS 111 [sym_kRaise]; ACTIONS 113 [sym_kRepeat];
   ACTIONS 117 [sym_kString]; ACTIONS 121 [sym_kTry]; ACTIONS 11092 [sym_kVar];
   ACTIONS 129 [sym_kWhile]; ACTIONS 131 [sym_kWith]].

(** State 1408. *)
Definition ts_parse_table_1408 : parse_row :=
  [STATE 14637 [sym_if]; STATE 14193 [sym_ifElse; sym_while; sym_repeat; sym_for; sym_foreach;
   sym_try; sym_case; sym_block; sym_asm; sym_with; sym_raise; sym_statement; sym_goto];
   STATE 14192 [sym_labeledStatement]; STATE 14193 [sym__statement];
   STATE 15512 [sym_assignment]; STATE 11829 [sym_varAssignDef]; STATE 15512 [sym_varDef;
   sym_constDef]; STATE 1444 [sym_label]; STATE 8444 [sym__expr; sym_exprConditional];
   STATE 7765 [sym__ref; sym_lambda; sym_inherited; sym_exprDot; sym_exprDeref; sym_exprAs;
   sym_exprTpl; sym_exprSubscript; sym_exprCall]; STATE 8444 [sym_exprBinary; sym_exprUnary];
   STATE 7765 [sym_exprParens; sym_exprBrackets; sym__literal; sym_literalString];
   STATE 6994 [sym__literalString; sym_literalChar]; STATE 7765 [sym_literalNumber];
   STATE 7888 [sym__literalInt; sym__literalFloat]; STATE 6994 [aux_sym_literalString_repeat1];
   ACTIONS 10234 [anon_sym_SEMI]; ACTIONS 11060 [anon_sym_LBRACK]; ACTIONS 47 [anon_sym_LPAREN];
   ACTIONS 49 [aux_sym__literalString_token1]; ACTIONS 51 [anon_sym_POUND];
   ACTIONS 53 [aux_sym__literalInt_token1]; ACTIONS 55 [aux_sym__literalInt_token2;
   aux_sym__literalInt_token3]; ACTIONS 53 [aux_sym__literalFloat_token1]; ACTIONS 61 [sym_kAdd;
   sym_kSub]; ACTIONS 63 [sym_kAt]; ACTIONS 65 [sym_kTrue; sym_kFalse];
   ACTIONS 11322 [sym_labelNumber]; ACTIONS 3 [sym__space]; ACTIONS 5 [sym_ppDirective];
   ACTIONS 3 [sym_comment]; ACTIONS 65 [sym_ppFragmentExpr];
   ACTIONS 49 [sym__literalStringMultiline]; ACTIONS 11324 [sym_identifier];
   ACTIONS 73 [sym_kSpecialize]; ACTIONS 11394 [sym_kAsm]; ACTIONS 11396 [sym_kBegin];
   ACTIONS 11398 [sym_kCase]; ACTIONS 11076 [sym_kConst]; ACTIONS 11400 [sym_kFor];
   ACTIONS 11080 [sym_kFunction]; ACTIONS 11402 [sym_kGoto]; ACTIONS 11404 [sym_kIf];
   ACTIONS 105 [sym_kInherited]; ACTIONS 65 [sym_kNil]; ACTIONS 63 [sym_kNot];
   ACTIONS 11080 [sym_kProcedure]; ACTIONS 11406 [sym_kRaise]; ACTIONS 11408 [sym_kRepeat];
   ACTIONS 117 [sym_kString]; ACTIONS 11410 [sym_kTry]; ACTIONS 11092 [sym_kVar];
   ACTIONS 11412 [sym_kWhile]; ACTIONS 11414 [sym_kWith]].

(** State 1409. *)
Definition ts_parse_table_1409 : parse_row :=
  [STATE 9071 [sym_if]; STATE 9195 [sym_ifElse; sym_while; sym_repeat; sym_for; sym_foreach;
   sym_try; sym_case; sym_block; sym_asm; sym_with; sym_raise; sym_statement; sym_goto;
   sym__statement]; STATE 14769 [sym_assignment]; STATE 11829 [sym_varAssignDef];
   STATE 14769 [sym_varDef; sym_constDef]; STATE 1427 [sym_label]; STATE 8366 [sym__expr;
   sym_exprConditional]; STATE 7765 [sym__ref; sym_lambda; sym_inherited; sym_exprDot;
   sym_exprDeref; sym_exprAs; sym_exprTpl; sym_exprSubscript; sym_exprCall];
   STATE 8366 [sym_exprBinary; sym_exprUnary]; STATE 7765 [sym_exprParens; sym_exprBrackets;
   sym__literal; sym_literalString]; STATE 6994 [sym__literalString; sym_literalChar];
   STATE 7765 [sym_literalNumber]; STATE 7888 [sym__literalInt; sym__literalFloat];
   STATE 1427 [aux_sym_labeledStatement_repeat1]; STATE 6994 [aux_sym_literalString_repeat1];
   ACTIONS 9970 [anon_sym_SEMI]; ACTIONS 11060 [anon_sym_LBRACK]; ACTIONS 47 [anon_sym_LPAREN];
   ACTIONS 49 [aux_sym__literalString_token1]; ACTIONS 51 [anon_sym_POUND];
   ACTIONS 53 [aux_sym__literalInt_token1]; ACTIONS 55 [aux_sym__literalInt_token2;
   aux_sym__literalInt_token3]; ACTIONS 53 [aux_sym__literalFloat_token1]; ACTIONS 61 [sym_kAdd;
   sym_kSub]; ACTIONS 63 [sym_kAt]; ACTIONS 65 [sym_kTrue; sym_kFalse];
   ACTIONS 11322 [sym_labelNumber]; ACTIONS 3 [sym__space]; ACTIONS 5 [sym_ppDirective];
   ACTIONS 3 [sym_comment]; ACTIONS 65 [sym_ppFragmentExpr];
   ACTIONS 49 [sym__literalStringMultiline]; ACTIONS 11324 [sym_identifier];
   ACTIONS 73 [sym_kSpecialize]; ACTIONS 11416 [sym_kAsm]; ACTIONS 11418 [sym_kBegin];
   ACTIONS 11420 [sym_kCase]; ACTIONS 11076 [sym_kConst]; ACTIONS 11422 [sym_kFor];
   ACTIONS 11080 [sym_kFunction]; ACTIONS 11424 [sym_kGoto]; ACTIONS 11426 [sym_kIf];
   ACTIONS 105 [sym_kInherited]; ACTIONS 65 [sym_kNil]; ACTIONS 63 [sym_kNot];
   ACTIONS 11080 [sym_kProcedure]; ACTIONS 11428 [sym_kRaise]; ACTIONS 11430 [sym_kRepeat];
   ACTIONS 117 [sym_kString]; ACTIONS 11432 [sym_kTry]; ACTIONS 11092 [sym_kVar];
   ACTIONS 11434 [sym_kWhile]; ACTIONS 11436 [sym_kWith]].

(** State 1410. *)
Definition ts_parse_table_1410 : parse_row :=
  [STATE 6463 [sym_if]; STATE 6461 [sym_ifElse; sym_while; sym_repeat; sym_for; sym_foreach;
   sym_try; sym_case; sym_block; sym_asm; sym_with; sym_raise; sym_statement; sym_goto];
   STATE 6544 [sym_labeledStatement]; STATE 6461 [sym__statement]; STATE 14997 [sym_assignment];
   STATE 11829 [sym_varAssignDef]; STATE 14997 [sym_varDef; sym_constDef];
   STATE 1420 [sym_label]; STATE 8298 [sym__expr; sym_exprConditional]; STATE 7765 [sym__ref;
   sym_lambda; sym_inherited; sym_exprDot; sym_exprDeref; sym_exprAs; sym_exprTpl;
   sym_exprSubscript; sym_exprCall]; STATE 8298 [sym_exprBinary; sym_exprUnary];
   STATE 7765 [sym_exprParens; sym_exprBrackets; sym__literal; sym_literalString];
   STATE 6994 [sym__literalString; sym_literalChar]; STATE 7765 [sym_literalNumber];
   STATE 7888 [sym__literalInt; sym__literalFloat]; STATE 6994 [aux_sym_literalString_repeat1];
   ACTIONS 10102 [anon_sym_SEMI]; ACTIONS 11060 [anon_sym_LBRACK]; ACTIONS 47 [anon_sym_LPAREN];
   ACTIONS 49 [aux_sym__literalString_token1]; ACTIONS 51 [anon_sym_POUND];
   ACTIONS 53 [aux_sym__literalInt_token1]; ACTIONS 55 [aux_sym__literalInt_token2;
   aux_sym__literalInt_token3]; ACTIONS 53 [aux_sym__literalFloat_token1]; ACTIONS 61 [sym_kAdd;
   sym_kSub]; ACTIONS 63 [sym_kAt]; ACTIONS 65 [sym_kTrue; sym_kFalse];
   ACTIONS 11322 [sym_labelNumber]; ACTIONS 3 [sym__space]; ACTIONS 5 [sym_ppDirective];
   ACTIONS 3 [sym_comment]; ACTIONS 65 [sym_ppFragmentExpr];
   ACTIONS 49 [sym__literalStringMultiline]; ACTIONS 11324 [sym_identifier];
   ACTIONS 73 [sym_kSpecialize]; ACTIONS 11326 [sym_kAsm]; ACTIONS 11328 [sym_kBegin];
   ACTIONS 11330 [sym_kCase]; ACTIONS 11076 [sym_kConst]; ACTIONS 11332 [sym_kFor];
   ACTIONS 11080 [sym_kFunction]; ACTIONS 11334 [sym_kGoto]; ACTIONS 11336 [sym_kIf];
   ACTIONS 105 [sym_kInherited]; ACTIONS 65 [sym_kNil]; ACTIONS 63 [sym_kNot];
   ACTIONS 11080 [sym_kProcedure]; ACTIONS 11338 [sym_kRaise]; ACTIONS 11340 [sym_kRepeat];
   ACTIONS 117 [sym_kString]; ACTIONS 11342 [sym_kTry]; ACTIONS 11092 [sym_kVar];
   ACTIONS 11344 [sym_kWhile]; ACTIONS 11346 [sym_kWith]].

(** State 1411. *)
Definition ts_parse_table_1411 : parse_row :=
  [STATE 1310 [sym_if]; STATE 1365 [sym_ifElse; sym_while; sym_repeat; sym_for; sym_foreach;
   sym_try; sym_case; sym_block; sym_asm; sym_with; sym_raise; sym_statement; sym_goto;
   sym__statement]; STATE 15141 [sym_assignment]; STATE 11829 [sym_varAssignDef];
   STATE 15141 [sym_varDef; sym_constDef]; STATE 1407 [sym_label]; STATE 8220 [sym__expr;
   sym_exprConditional]; STATE 7765 [sym__ref; sym_lambda; sym_inherited; sym_exprDot;
   sym_exprDeref; sym_exprAs; sym_exprTpl; sym_exprSubscript; sym_exprCall];
   STATE 8220 [sym_exprBinary; sym_exprUnary]; STATE 7765 [sym_exprParens; sym_exprBrackets;
   sym__literal; sym_literalString]; STATE 6994 [sym__literalString; sym_literalChar];
   STATE 7765 [sym_literalNumber]; STATE 7888 [sym__literalInt; sym__literalFloat];
   STATE 1407 [aux_sym_labeledStatement_repeat1]; STATE 6994 [aux_sym_literalString_repeat1];
   ACTIONS 10726 [anon_sym_SEMI]; ACTIONS 11060 [anon_sym_LBRACK]; ACTIONS 47 [anon_sym_LPAREN];
   ACTIONS 49 [aux_sym__literalString_token1]; ACTIONS 51 [anon_sym_POUND];
   ACTIONS 53 [aux_sym__literalInt_token1]; ACTIONS 55 [aux_sym__literalInt_token2;
   aux_sym__literalInt_token3]; ACTIONS 53 [aux_sym__literalFloat_token1]; ACTIONS 61 [sym_kAdd;
   sym_kSub]; ACTIONS 63 [sym_kAt]; ACTIONS 65 [sym_kTrue; sym_kFalse];
   ACTIONS 11322 [sym_labelNumber]; ACTIONS 3 [sym__space]; ACTIONS 5 [sym_ppDirective];
   ACTIONS 3 [sym_comment]; ACTIONS 65 [sym_ppFragmentExpr];
   ACTIONS 49 [sym__literalStringMultiline]; ACTIONS 11324 [sym_identifier];
   ACTIONS 73 [sym_kSpecialize]; ACTIONS 83 [sym_kAsm]; ACTIONS 85 [sym_kBegin];
   ACTIONS 87 [sym_kCase]; ACTIONS 11076 [sym_kConst]; ACTIONS 97 [sym_kFor];
   ACTIONS 11080 [sym_kFunction]; ACTIONS 101 [sym_kGoto]; ACTIONS 103 [sym_kIf];
   ACTIONS 105 [sym_kInherited]; ACTIONS 65 [sym_kNil]; ACTIONS 63 [sym_kNot];
   ACTIONS 11080 [sym_kProcedure]; ACTIONS 111 [sym_kRaise]; ACTIONS 113 [sym_kRepeat];
   ACTIONS 117 [sym_kString]; ACTIONS 121 [sym_kTry]; ACTIONS 11092 [sym_kVar];
   ACTIONS 129 [sym_kWhile]; ACTIONS 131 [sym_kWith]].

(** State 1412. *)
Definition ts_parse_table_1412 : parse_row :=
  [STATE 1310 [sym_if]; STATE 1311 [sym_ifElse; sym_while; sym_repeat; sym_for; sym_foreach;
   sym_try; sym_case; sym_block; sym_asm; sym_with; sym_raise; sym_statement; sym_goto;
   sym_labeledStatement; sym__statement]; STATE 15141 [sym_assignment];
   STATE 11829 [sym_varAssignDef]; STATE 15141 [sym_varDef; sym_constDef];
   STATE 1411 [sym_label]; STATE 8220 [sym__expr; sym_exprConditional]; STATE 7765 [sym__ref;
   sym_lambda; sym_inherited; sym_exprDot; sym_exprDeref; sym_exprAs; sym_exprTpl;
   sym_exprSubscript; sym_exprCall]; STATE 8220 [sym_exprBinary; sym_exprUnary];
   STATE 7765 [sym_exprParens; sym_exprBrackets; sym__literal; sym_literalString];
   STATE 6994 [sym__literalString; sym_literalChar]; STATE 7765 [sym_literalNumber];
   STATE 7888 [sym__literalInt; sym__literalFloat]; STATE 6994 [aux_sym_literalString_repeat1];
   ACTIONS 10552 [anon_sym_SEMI]; ACTIONS 11060 [anon_sym_LBRACK]; ACTIONS 47 [anon_sym_LPAREN];
   ACTIONS 49 [aux_sym__literalString_token1]; ACTIONS 51 [anon_sym_POUND];
   ACTIONS 53 [aux_sym__literalInt_token1]; ACTIONS 55 [aux_sym__literalInt_token2;
   aux_sym__literalInt_token3]; ACTIONS 53 [aux_sym__literalFloat_token1]; ACTIONS 61 [sym_kAdd;
   sym_kSub]; ACTIONS 63 [sym_kAt]; ACTIONS 65 [sym_kTrue; sym_kFalse];
   ACTIONS 11322 [sym_labelNumber]; ACTIONS 3 [sym__space]; ACTIONS 5 [sym_ppDirective];
   ACTIONS 3 [sym_comment]; ACTIONS 65 [sym_ppFragmentExpr];
   ACTIONS 49 [sym__literalStringMultiline]; ACTIONS 11324 [sym_identifier];
   ACTIONS 73 [sym_kSpecialize]; ACTIONS 83 [sym_kAsm]; ACTIONS 85 [sym_kBegin];
   ACTIONS 87 [sym_kCase]; ACTIONS 11076 [sym_kConst]; ACTIONS 97 [sym_kFor];
   ACTIONS 11080 [sym_kFunction]; ACTIONS 101 [sym_kGoto]; ACTIONS 103 [sym_kIf];
   ACTIONS 105 [sym_kInherited]; ACTIONS 65 [sym_kNil]; ACTIONS 63 [sym_kNot];
   ACTIONS 11080 [sym_kProcedure]; ACTIONS 111 [sym_kRaise]; ACTIONS 113 [sym_kRepeat];
   ACTIONS 117 [sym_kString]; ACTIONS 121 [sym_kTry]; ACTIONS 11092 [sym_kVar];
   ACTIONS 129 [sym_kWhile]; ACTIONS 131 [sym_kWith]].

(** State 1413. *)
Definition ts_parse_table_1413 : parse_row :=
  [STATE 1310 [sym_if]; STATE 1340 [sym_ifElse; sym_while; sym_repeat; sym_for; sym_foreach;
   sym_try; sym_case; sym_block; sym_asm; sym_with; sym_raise; sym_statement; sym_goto];
   STATE 1377 [sym_labeledStatement]; STATE 1340 [sym__statement]; STATE 15141 [sym_assignment];
   STATE 11829 [sym_varAssignDef]; STATE 15141 [sym_varDef; sym_constDef];
   STATE 1411 [sym_label]; STATE 8220 [sym__expr; sym_exprConditional]; STATE 7765 [sym__ref;
   sym_lambda; sym_inherited; sym_exprDot; sym_exprDeref; sym_exprAs; sym_exprTpl;
   sym_exprSubscript; sym_exprCall]; STATE 8220 [sym_exprBinary; sym_exprUnary];
   STATE 7765 [sym_exprParens; sym_exprBrackets; sym__literal; sym_literalString];
   STATE 6994 [sym__literalString; sym_literalChar]; STATE 7765 [sym_literalNumber];
   STATE 7888 [sym__literalInt; sym__literalFloat]; STATE 6994 [aux_sym_literalString_repeat1];
   ACTIONS 10550 [anon_sym_SEMI]; ACTIONS 11060 [anon_sym_LBRACK]; ACTIONS 47 [anon_sym_LPAREN];
   ACTIONS 49 [aux_sym__literalString_token1]; ACTIONS 51 [anon_sym_POUND];
   ACTIONS 53 [aux_sym__literalInt_token1]; ACTIONS 55 [aux_sym__literalInt_token2;
   aux_sym__literalInt_token3]; ACTIONS 53 [aux_sym__literalFloat_token1]; ACTIONS 61 [sym_kAdd;
   sym_kSub]; ACTIONS 63 [sym_kAt]; ACTIONS 65 [sym_kTrue; sym_kFalse];
   ACTIONS 11322 [sym_labelNumber]; ACTIONS 3 [sym__space]; ACTIONS 5 [sym_ppDirective];
   ACTIONS 3 [sym_comment]; ACTIONS 65 [sym_ppFragmentExpr];
   ACTIONS 49 [sym__literalStringMultiline]; ACTIONS 11324 [sym_identifier];
   ACTIONS 73 [sym_kSpecialize]; ACTIONS 83 [sym_kAsm]; ACTIONS 85 [sym_kBegin];
   ACTIONS 87 [sym_kCase]; ACTIONS 11076 [sym_kConst]; ACTIONS 97 [sym_kFor];
   ACTIONS 11080 [sym_kFunction]; ACTIONS 101 [sym_kGoto]; ACTIONS 103 [sym_kIf];
   ACTIONS 105 [sym_kInherited]; ACTIONS 65 [sym_kNil]; ACTIONS 63 [sym_kNot];
   ACTIONS 11080 [sym_kProcedure]; ACTIONS 111 [sym_kRaise]; ACTIONS 113 [sym_kRepeat];
   ACTIONS 117 [sym_kString]; ACTIONS 121 [sym_kTry]; ACTIONS 11092 [sym_kVar];
   ACTIONS 129 [sym_kWhile]; ACTIONS 131 [sym_kWith]].

(** State 1414. *)
Definition ts_parse_table_1414 : parse_row :=
  [STATE 6451 [sym_if]; STATE 6356 [sym_ifElse; sym_while; sym_repeat; sym_for; sym_foreach;
   sym_try; sym_case; sym_block; sym_asm; sym_with; sym_raise; sym_statement; sym_goto;
   sym_labeledStatement; sym__statement]; STATE 15358 [sym_assignment];
   STATE 11829 [sym_varAssignDef]; STATE 15358 [sym_varDef; sym_constDef];
   STATE 1415 [sym_label]; STATE 8210 [sym__expr; sym_exprConditional]; STATE 7765 [sym__ref;
   sym_lambda; sym_inherited; sym_exprDot; sym_exprDeref; sym_exprAs; sym_exprTpl;
   sym_exprSubscript; sym_exprCall]; STATE 8210 [sym_exprBinary; sym_exprUnary];
   STATE 7765 [sym_exprParens; sym_exprBrackets; sym__literal; sym_literalString];
   STATE 6994 [sym__literalString; sym_literalChar]; STATE 7765 [sym_literalNumber];
   STATE 7888 [sym__literalInt; sym__literalFloat]; STATE 6994 [aux_sym_literalString_repeat1];
   ACTIONS 9984 [anon_sym_SEMI]; ACTIONS 11060 [anon_sym_LBRACK]; ACTIONS 47 [anon_sym_LPAREN];
   ACTIONS 49 [aux_sym__literalString_token1]; ACTIONS 51 [anon_sym_POUND];
   ACTIONS 53 [aux_sym__literalInt_token1]; ACTIONS 55 [aux_sym__literalInt_token2;
   aux_sym__literalInt_token3]; ACTIONS 53 [aux_sym__literalFloat_token1]; ACTIONS 61 [sym_kAdd;
   sym_kSub]; ACTIONS 63 [sym_kAt]; ACTIONS 65 [sym_kTrue; sym_kFalse];
   ACTIONS 11322 [sym_labelNumber]; ACTIONS 3 [sym__space]; ACTIONS 5 [sym_ppDirective];
   ACTIONS 3 [sym_comment]; ACTIONS 65 [sym_ppFragmentExpr];
   ACTIONS 49 [sym__literalStringMultiline]; ACTIONS 11324 [sym_identifier];
   ACTIONS 73 [sym_kSpecialize]; ACTIONS 11350 [sym_kAsm]; ACTIONS 11352 [sym_kBegin];
   ACTIONS 11354 [sym_kCase]; ACTIONS 11076 [sym_kConst]; ACTIONS 11356 [sym_kFor];
   ACTIONS 11080 [sym_kFunction]; ACTIONS 11358 [sym_kGoto]; ACTIONS 11360 [sym_kIf];
   ACTIONS 105 [sym_kInherited]; ACTIONS 65 [sym_kNil]; ACTIONS 63 [sym_kNot];
   ACTIONS 11080 [sym_kProcedure]; ACTIONS 11362 [sym_kRaise]; ACTIONS 11364 [sym_kRepeat];
   ACTIONS 117 [sym_kString]; ACTIONS 11366 [sym_kTry]; ACTIONS 11092 [sym_kVar];
   ACTIONS 11368 [sym_kWhile]; ACTIONS 11370 [sym_kWith]].

(** State 1415. *)
Definition ts_parse_table_1415 : parse_row :=
  [STATE 6451 [sym_if]; STATE 6409 [sym_ifElse; sym_while; sym_repeat; sym_for; sym_foreach;
   sym_try; sym_case; sym_block; sym_asm; sym_with; sym_raise; sym_statement; sym_goto;
   sym__statement]; STATE 15358 [sym_assignment]; STATE 11829 [sym_varAssignDef];
   STATE 15358 [sym_varDef; sym_constDef]; STATE 1446 [sym_label]; STATE 8210 [sym__expr;
   sym_exprConditional]; STATE 7765 [sym__ref; sym_lambda; sym_inherited; sym_exprDot;
   sym_exprDeref; sym_exprAs; sym_exprTpl; sym_exprSubscript; sym_exprCall];
   STATE 8210 [sym_exprBinary; sym_exprUnary]; STATE 7765 [sym_exprParens; sym_exprBrackets;
   sym__literal; sym_literalString]; STATE 6994 [sym__literalString; sym_literalChar];
   STATE 7765 [sym_literalNumber]; STATE 7888 [sym__literalInt; sym__literalFloat];
   STATE 1446 [aux_sym_labeledStatement_repeat1]; STATE 6994 [aux_sym_literalString_repeat1];
   ACTIONS 10832 [anon_sym_SEMI]; ACTIONS 11060 [anon_sym_LBRACK]; ACTIONS 47 [anon_sym_LPAREN];
   ACTIONS 49 [aux_sym__literalString_token1]; ACTIONS 51 [anon_sym_POUND];
   ACTIONS 53 [aux_sym__literalInt_token1]; ACTIONS 55 [aux_sym__literalInt_token2;
   aux_sym__literalInt_token3]; ACTIONS 53 [aux_sym__literalFloat_token1]; ACTIONS 61 [sym_kAdd;
   sym_kSub]; ACTIONS 63 [sym_kAt]; ACTIONS 65 [sym_kTrue; sym_kFalse];
   ACTIONS 11322 [sym_labelNumber]; ACTIONS 3 [sym__space]; ACTIONS 5 [sym_ppDirective];
   ACTIONS 3 [sym_comment]; ACTIONS 65 [sym_ppFragmentExpr];
   ACTIONS 49 [sym__literalStringMultiline]; ACTIONS 11324 [sym_identifier];
   ACTIONS 73 [sym_kSpecialize]; ACTIONS 11350 [sym_kAsm]; ACTIONS 11352 [sym_kBegin];
   ACTIONS 11354 [sym_kCase]; ACTIONS 11076 [sym_kConst]; ACTIONS 11356 [sym_kFor];
   ACTIONS 11080 [sym_kFunction]; ACTIONS 11358 [sym_kGoto]; ACTIONS 11360 [sym_kIf];
   ACTIONS 105 [sym_kInherited]; ACTIONS 65 [sym_kNil]; ACTIONS 63 [sym_kNot];
   ACTIONS 11080 [sym_kProcedure]; ACTIONS 11362 [sym_kRaise]; ACTIONS 11364 [sym_kRepeat];
   ACTIONS 117 [sym_kString]; ACTIONS 11366 [sym_kTry]; ACTIONS 11092 [sym_kVar];
   ACTIONS 11368 [sym_kWhile]; ACTIONS 11370 [sym_kWith]].

(** State 1416. *)
Definition ts_parse_table_1416 : parse_row :=
  [STATE 15084 [sym_if]; STATE 14265 [sym_ifElse; sym_while; sym_repeat; sym_for; sym_foreach;
   sym_try; sym_case; sym_block; sym_asm; sym_with; sym_raise; sym_statement; sym_goto;
   sym_labeledStatement; sym__statement]; STATE 14151 [sym_assignment];
   STATE 11829 [sym_varAssignDef]; STATE 14151 [sym_varDef; sym_constDef];
   STATE 1464 [sym_label]; STATE 8337 [sym__expr; sym_exprConditional]; STATE 7765 [sym__ref;
   sym_lambda; sym_inherited; sym_exprDot; sym_exprDeref; sym_exprAs; sym_exprTpl;
   sym_exprSubscript; sym_exprCall]; STATE 8337 [sym_exprBinary; sym_exprUnary];
   STATE 7765 [sym_exprParens; sym_exprBrackets; sym__literal; sym_literalString];
   STATE 6994 [sym__literalString; sym_literalChar]; STATE 7765 [sym_literalNumber];
   STATE 7888 [sym__literalInt; sym__literalFloat]; STATE 6994 [aux_sym_literalString_repeat1];
   ACTIONS 10704 [anon_sym_SEMI]; ACTIONS 11060 [anon_sym_LBRACK]; ACTIONS 47 [anon_sym_LPAREN];
   ACTIONS 49 [aux_sym__literalString_token1]; ACTIONS 51 [anon_sym_POUND];
   ACTIONS 53 [aux_sym__literalInt_token1]; ACTIONS 55 [aux_sym__literalInt_token2;
   aux_sym__literalInt_token3]; ACTIONS 53 [aux_sym__literalFloat_token1]; ACTIONS 61 [sym_kAdd;
   sym_kSub]; ACTIONS 63 [sym_kAt]; ACTIONS 65 [sym_kTrue; sym_kFalse];
   ACTIONS 11322 [sym_labelNumber]; ACTIONS 3 [sym__space]; ACTIONS 5 [sym_ppDirective];
   ACTIONS 3 [sym_comment]; ACTIONS 65 [sym_ppFragmentExpr];
   ACTIONS 49 [sym__literalStringMultiline]; ACTIONS 11324 [sym_identifier];
   ACTIONS 73 [sym_kSpecialize]; ACTIONS 11438 [sym_kAsm]; ACTIONS 11440 [sym_kBegin];
   ACTIONS 11442 [sym_kCase]; ACTIONS 11076 [sym_kConst]; ACTIONS 11444 [sym_kFor];
   ACTIONS 11080 [sym_kFunction]; ACTIONS 11446 [sym_kGoto]; ACTIONS 11448 [sym_kIf];
   ACTIONS 105 [sym_kInherited]; ACTIONS 65 [sym_kNil]; ACTIONS 63 [sym_kNot];
   ACTIONS 11080 [sym_kProcedure]; ACTIONS 11450 [sym_kRaise]; ACTIONS 11452 [sym_kRepeat];
   ACTIONS 117 [sym_kString]; ACTIONS 11454 [sym_kTry]; ACTIONS 11092 [sym_kVar];
   ACTIONS 11456 [sym_kWhile]; ACTIONS 11458 [sym_kWith]].

(** State 1417. *)
Definition ts_parse_table_1417 : parse_row :=
  [STATE 15084 [sym_if]; STATE 14266 [sym_ifElse; sym_while; sym_repeat; sym_for; sym_foreach;
   sym_try; sym_case; sym_block; sym_asm; sym_with; sym_raise; sym_statement; sym_goto;
   sym_labeledStatement; sym__statement]; STATE 14151 [sym_assignment];
   STATE 11829 [sym_varAssignDef]; STATE 14151 [sym_varDef; sym_constDef];
   STATE 1464 [sym_label]; STATE 8337 [sym__expr; sym_exprConditional]; STATE 7765 [sym__ref;
   sym_lambda; sym_inherited; sym_exprDot; sym_exprDeref; sym_exprAs; sym_exprTpl;
   sym_exprSubscript; sym_exprCall]; STATE 8337 [sym_exprBinary; sym_exprUnary];
   STATE 7765 [sym_exprParens; sym_exprBrackets; sym__literal; sym_literalString];
   STATE 6994 [sym__literalString; sym_literalChar]; STATE 7765 [sym_literalNumber];
   STATE 7888 [sym__literalInt; sym__literalFloat]; STATE 6994 [aux_sym_literalString_repeat1];
   ACTIONS 10570 [anon_sym_SEMI]; ACTIONS 11060 [anon_sym_LBRACK]; ACTIONS 47 [anon_sym_LPAREN];
   ACTIONS 49 [aux_sym__literalString_token1]; ACTIONS 51 [anon_sym_POUND];
   ACTIONS 53 [aux_sym__literalInt_token1]; ACTIONS 55 [aux_sym__literalInt_token2;
   aux_sym__literalInt_token3]; ACTIONS 53 [aux_sym__literalFloat_token1]; ACTIONS 61 [sym_kAdd;
   sym_kSub]; ACTIONS 63 [sym_kAt]; ACTIONS 65 [sym_kTrue; sym_kFalse];
   ACTIONS 11322 [sym_labelNumber]; ACTIONS 3 [sym__space]; ACTIONS 5 [sym_ppDirective];
   ACTIONS 3 [sym_comment]; ACTIONS 65 [sym_ppFragmentExpr];
   ACTIONS 49 [sym__literalStringMultiline]; ACTIONS 11324 [sym_identifier];
   ACTIONS 73 [sym_kSpecialize]; ACTIONS 11438 [sym_kAsm]; ACTIONS 11440 [sym_kBegin];
   ACTIONS 11442 [sym_kCase]; ACTIONS 11076 [sym_kConst]; ACTIONS 11444 [sym_kFor];
   ACTIONS 11080 [sym_kFunction]; ACTIONS 11446 [sym_kGoto]; ACTIONS 11448 [sym_kIf];
   ACTIONS 105 [sym_kInherited]; ACTIONS 65 [sym_kNil]; ACTIONS 63 [sym_kNot];
   ACTIONS 11080 [sym_kProcedure]; ACTIONS 11450 [sym_kRaise]; ACTIONS 11452 [sym_kRepeat];
   ACTIONS 117 [sym_kString]; ACTIONS 11454 [sym_kTry]; ACTIONS 11092 [sym_kVar];
   ACTIONS 11456 [sym_kWhile]; ACTIONS 11458 [sym_kWith]].

(** State 1418. *)
Definition ts_parse_table_1418 : parse_row :=
  [STATE 1310 [sym_if]; STATE 1337 [sym_ifElse; sym_while; sym_repeat; sym_for; sym_foreach;
   sym_try; sym_case; sym_block; sym_asm; sym_with; sym_raise; sym_statement; sym_goto;
   sym_labeledStatement; sym__statement]; STATE 15141 [sym_assignment];
   STATE 11829 [sym_varAssignDef]; STATE 15141 [sym_varDef; sym_constDef];
   STATE 1411 [sym_label]; STATE 8220 [sym__expr; sym_exprConditional]; STATE 7765 [sym__ref;
   sym_lambda; sym_inherited; sym_exprDot; sym_exprDeref; sym_exprAs; sym_exprTpl;
   sym_exprSubscript; sym_exprCall]; STATE 8220 [sym_exprBinary; sym_exprUnary];
   STATE 7765 [sym_exprParens; sym_exprBrackets; sym__literal; sym_literalString];
   STATE 6994 [sym__literalString; sym_literalChar]; STATE 7765 [sym_literalNumber];
   STATE 7888 [sym__literalInt; sym__literalFloat]; STATE 6994 [aux_sym_literalString_repeat1];
   ACTIONS 10554 [anon_sym_SEMI]; ACTIONS 11060 [anon_sym_LBRACK]; ACTIONS 47 [anon_sym_LPAREN];
   ACTIONS 49 [aux_sym__literalString_token1]; ACTIONS 51 [anon_sym_POUND];
   ACTIONS 53 [aux_sym__literalInt_token1]; ACTIONS 55 [aux_sym__literalInt_token2;
   aux_sym__literalInt_token3]; ACTIONS 53 [aux_sym__literalFloat_token1]; ACTIONS 61 [sym_kAdd;
   sym_kSub]; ACTIONS 63 [sym_kAt]; ACTIONS 65 [sym_kTrue; sym_kFalse];
   ACTIONS 11322 [sym_labelNumber]; ACTIONS 3 [sym__space]; ACTIONS 5 [sym_ppDirective];
   ACTIONS 3 [sym_comment]; ACTIONS 65 [sym_ppFragmentExpr];
   ACTIONS 49 [sym__literalStringMultiline]; ACTIONS 11324 [sym_identifier];
   ACTIONS 73 [sym_kSpecialize]; ACTIONS 83 [sym_kAsm]; ACTIONS 85 [sym_kBegin];
   ACTIONS 87 [sym_kCase]; ACTIONS 11076 [sym_kConst]; ACTIONS 97 [sym_kFor];
   ACTIONS 11080 [sym_kFunction]; ACTIONS 101 [sym_kGoto]; ACTIONS 103 [sym_kIf];
   ACTIONS 105 [sym_kInherited]; ACTIONS 65 [sym_kNil]; ACTIONS 63 [sym_kNot];
   ACTIONS 11080 [sym_kProcedure]; ACTIONS 111 [sym_kRaise]; ACTIONS 113 [sym_kRepeat];
   ACTIONS 117 [sym_kString]; ACTIONS 121 [sym_kTry]; ACTIONS 11092 [sym_kVar];
   ACTIONS 129 [sym_kWhile]; ACTIONS 131 [sym_kWith]].

(** State 1419. *)
Definition ts_parse_table_1419 : parse_row :=
  [STATE 15084 [sym_if]; STATE 14455 [sym_ifElse; sym_while; sym_repeat; sym_for; sym_foreach;
   sym_try; sym_case; sym_block; sym_asm; sym_with; sym_raise; sym_statement; sym_goto;
   sym_labeledStatement; sym__statement]; STATE 14151 [sym_assignment];
   STATE 11829 [sym_varAssignDef]; STATE 14151 [sym_varDef; sym_constDef];
   STATE 1464 [sym_label]; STATE 8337 [sym__expr; sym_exprConditional]; STATE 7765 [sym__ref;
   sym_lambda; sym_inherited; sym_exprDot; sym_exprDeref; sym_exprAs; sym_exprTpl;
   sym_exprSubscript; sym_exprCall]; STATE 8337 [sym_exprBinary; sym_exprUnary];
   STATE 7765 [sym_exprParens; sym_exprBrackets; sym__literal; sym_literalString];
   STATE 6994 [sym__literalString; sym_literalChar]; STATE 7765 [sym_literalNumber];
   STATE 7888 [sym__literalInt; sym__literalFloat]; STATE 6994 [aux_sym_literalString_repeat1];
   ACTIONS 10586 [anon_sym_SEMI]; ACTIONS 11060 [anon_sym_LBRACK]; ACTIONS 47 [anon_sym_LPAREN];
   ACTIONS 49 [aux_sym__literalString_token1]; ACTIONS 51 [anon_sym_POUND];
   ACTIONS 53 [aux_sym__literalInt_token1]; ACTIONS 55 [aux_sym__literalInt_token2;
   aux_sym__literalInt_token3]; ACTIONS 53 [aux_sym__literalFloat_token1]; ACTIONS 61 [sym_kAdd;
   sym_kSub]; ACTIONS 63 [sym_kAt]; ACTIONS 65 [sym_kTrue; sym_kFalse];
   ACTIONS 11322 [sym_labelNumber]; ACTIONS 3 [sym__space]; ACTIONS 5 [sym_ppDirective];
   ACTIONS 3 [sym_comment]; ACTIONS 65 [sym_ppFragmentExpr];
   ACTIONS 49 [sym__literalStringMultiline]; ACTIONS 11324 [sym_identifier];
   ACTIONS 73 [sym_kSpecialize]; ACTIONS 11438 [sym_kAsm]; ACTIONS 11440 [sym_kBegin];
   ACTIONS 11442 [sym_kCase]; ACTIONS 11076 [sym_kConst]; ACTIONS 11444 [sym_kFor];
   ACTIONS 11080 [sym_kFunction]; ACTIONS 11446 [sym_kGoto]; ACTIONS 11448 [sym_kIf];
   ACTIONS 105 [sym_kInherited]; ACTIONS 65 [sym_kNil]; ACTIONS 63 [sym_kNot];
   ACTIONS 11080 [sym_kProcedure]; ACTIONS 11450 [sym_kRaise]; ACTIONS 11452 [sym_kRepeat];
   ACTIONS 117 [sym_kString]; ACTIONS 11454 [sym_kTry]; ACTIONS 11092 [sym_kVar];
   ACTIONS 11456 [sym_kWhile]; ACTIONS 11458 [sym_kWith]].

(** State 1420. *)
Definition ts_parse_table_1420 : parse_row :=
  [STATE 6463 [sym_if]; STATE 6603 [sym_ifElse; sym_while; sym_repeat; sym_for; sym_foreach;
   sym_try; sym_case; sym_block; sym_asm; sym_with; sym_raise; sym_statement; sym_goto;
   sym__statement]; STATE 14997 [sym_assignment]; STATE 11829 [sym_varAssignDef];
   STATE 14997 [sym_varDef; sym_constDef]; STATE 1451 [sym_label]; STATE 8298 [sym__expr;
   sym_exprConditional]; STATE 7765 [sym__ref; sym_lambda; sym_inherited; sym_exprDot;
   sym_exprDeref; sym_exprAs; sym_exprTpl; sym_exprSubscript; sym_exprCall];
   STATE 8298 [sym_exprBinary; sym_exprUnary]; STATE 7765 [sym_exprParens; sym_exprBrackets;
   sym__literal; sym_literalString]; STATE 6994 [sym__literalString; sym_literalChar];
   STATE 7765 [sym_literalNumber]; STATE 7888 [sym__literalInt; sym__literalFloat];
   STATE 1451 [aux_sym_labeledStatement_repeat1]; STATE 6994 [aux_sym_literalString_repeat1];
   ACTIONS 10714 [anon_sym_SEMI]; ACTIONS 11060 [anon_sym_LBRACK]; ACTIONS 47 [anon_sym_LPAREN];
   ACTIONS 49 [aux_sym__literalString_token1]; ACTIONS 51 [anon_sym_POUND];
   ACTIONS 53 [aux_sym__literalInt_token1]; ACTIONS 55 [aux_sym__literalInt_token2;
   aux_sym__literalInt_token3]; ACTIONS 53 [aux_sym__literalFloat_token1]; ACTIONS 61 [sym_kAdd;
   sym_kSub]; ACTIONS 63 [sym_kAt]; ACTIONS 65 [sym_kTrue; sym_kFalse];
   ACTIONS 11322 [sym_labelNumber]; ACTIONS 3 [sym__space]; ACTIONS 5 [sym_ppDirective];
   ACTIONS 3 [sym_comment]; ACTIONS 65 [sym_ppFragmentExpr];
   ACTIONS 49 [sym__literalStringMultiline]; ACTIONS 11324 [sym_identifier];
   ACTIONS 73 [sym_kSpecialize]; ACTIONS 11326 [sym_kAsm]; ACTIONS 11328 [sym_kBegin];
   ACTIONS 11330 [sym_kCase]; ACTIONS 11076 [sym_kConst]; ACTIONS 11332 [sym_kFor];
   ACTIONS 11080 [sym_kFunction]; ACTIONS 11334 [sym_kGoto]; ACTIONS 11336 [sym_kIf];
   ACTIONS 105 [sym_kInherited]; ACTIONS 65 [sym_kNil]; ACTIONS 63 [sym_kNot];
   ACTIONS 11080 [sym_kProcedure]; ACTIONS 11338 [sym_kRaise]; ACTIONS 11340 [sym_kRepeat];
   ACTIONS 117 [sym_kString]; ACTIONS 11342 [sym_kTry]; ACTIONS 11092 [sym_kVar];
   ACTIONS 11344 [sym_kWhile]; ACTIONS 11346 [sym_kWith]].

(** State 1421. *)
Definition ts_parse_table_1421 : parse_row :=
  [STATE 15084 [sym_if]; STATE 14557 [sym_ifElse; sym_while; sym_repeat; sym_for; sym_foreach;
   sym_try; sym_case; sym_block; sym_asm; sym_with; sym_raise; sym_statement; sym_goto];
   STATE 14542 [sym_labeledStatement]; STATE 14557 [sym__statement];
   STATE 14151 [sym_assignment]; STATE 11829 [sym_varAssignDef]; STATE 14151 [sym_varDef;
   sym_constDef]; STATE 1464 [sym_label]; STATE 8337 [sym__expr; sym_exprConditional];
   STATE 7765 [sym__ref; sym_lambda; sym_inherited; sym_exprDot; sym_exprDeref; sym_exprAs;
   sym_exprTpl; sym_exprSubscript; sym_exprCall]; STATE 8337 [sym_exprBinary; sym_exprUnary];
   STATE 7765 [sym_exprParens; sym_exprBrackets; sym__literal; sym_literalString];
   STATE 6994 [sym__literalString; sym_literalChar]; STATE 7765 [sym_literalNumber];
   STATE 7888 [sym__literalInt; sym__literalFloat]; STATE 6994 [aux_sym_literalString_repeat1];
   ACTIONS 10588 [anon_sym_SEMI]; ACTIONS 11060 [anon_sym_LBRACK]; ACTIONS 47 [anon_sym_LPAREN];
   ACTIONS 49 [aux_sym__literalString_token1]; ACTIONS 51 [anon_sym_POUND];
   ACTIONS 53 [aux_sym__literalInt_token1]; ACTIONS 55 [aux_sym__literalInt_token2;
   aux_sym__literalInt_token3]; ACTIONS 53 [aux_sym__literalFloat_token1]; ACTIONS 61 [sym_kAdd;
   sym_kSub]; ACTIONS 63 [sym_kAt]; ACTIONS 65 [sym_kTrue; sym_kFalse];
   ACTIONS 11322 [sym_labelNumber]; ACTIONS 3 [sym__space]; ACTIONS 5 [sym_ppDirective];
   ACTIONS 3 [sym_comment]; ACTIONS 65 [sym_ppFragmentExpr];
   ACTIONS 49 [sym__literalStringMultiline]; ACTIONS 11324 [sym_identifier];
   ACTIONS 73 [sym_kSpecialize]; ACTIONS 11438 [sym_kAsm]; ACTIONS 11440 [sym_kBegin];
   ACTIONS 11442 [sym_kCase]; ACTIONS 11076 [sym_kConst]; ACTIONS 11444 [sym_kFor];
   ACTIONS 11080 [sym_kFunction]; ACTIONS 11446 [sym_kGoto]; ACTIONS 11448 [sym_kIf];
   ACTIONS 105 [sym_kInherited]; ACTIONS 65 [sym_kNil]; ACTIONS 63 [sym_kNot];
   ACTIONS 11080 [sym_kProcedure]; ACTIONS 11450 [sym_kRaise]; ACTIONS 11452 [sym_kRepeat];
   ACTIONS 117 [sym_kString]; ACTIONS 11454 [sym_kTry]; ACTIONS 11092 [sym_kVar];
   ACTIONS 11456 [sym_kWhile]; ACTIONS 11458 [sym_kWith]].

(** State 1422. *)
Definition ts_parse_table_1422 : parse_row :=
  [STATE 6451 [sym_if]; STATE 6396 [sym_ifElse; sym_while; sym_repeat; sym_for; sym_foreach;
   sym_try; sym_case; sym_block; sym_asm; sym_with; sym_raise; sym_statement; sym_goto];
   STATE 6392 [sym_labeledStatement]; STATE 6396 [sym__statement]; STATE 15358 [sym_assignment];
   STATE 11829 [sym_varAssignDef]; STATE 15358 [sym_varDef; sym_constDef];
   STATE 1415 [sym_label]; STATE 8210 [sym__expr; sym_exprConditional]; STATE 7765 [sym__ref;
   sym_lambda; sym_inherited; sym_exprDot; sym_exprDeref; sym_exprAs; sym_exprTpl;
   sym_exprSubscript; sym_exprCall]; STATE 8210 [sym_exprBinary; sym_exprUnary];
   STATE 7765 [sym_exprParens; sym_exprBrackets; sym__literal; sym_literalString];
   STATE 6994 [sym__literalString; sym_literalChar]; STATE 7765 [sym_literalNumber];
   STATE 7888 [sym__literalInt; sym__literalFloat]; STATE 6994 [aux_sym_literalString_repeat1];
   ACTIONS 10672 [anon_sym_SEMI]; ACTIONS 11060 [anon_sym_LBRACK]; ACTIONS 47 [anon_sym_LPAREN];
   ACTIONS 49 [aux_sym__literalString_token1]; ACTIONS 51 [anon_sym_POUND];
   ACTIONS 53 [aux_sym__literalInt_token1]; ACTIONS 55 [aux_sym__literalInt_token2;
   aux_sym__literalInt_token3]; ACTIONS 53 [aux_sym__literalFloat_token1]; ACTIONS 61 [sym_kAdd;
   sym_kSub]; ACTIONS 63 [sym_kAt]; ACTIONS 65 [sym_kTrue; sym_kFalse];
   ACTIONS 11322 [sym_labelNumber]; ACTIONS 3 [sym__space]; ACTIONS 5 [sym_ppDirective];
   ACTIONS 3 [sym_comment]; ACTIONS 65 [sym_ppFragmentExpr];
   ACTIONS 49 [sym__literalStringMultiline]; ACTIONS 11324 [sym_identifier];
   ACTIONS 73 [sym_kSpecialize]; ACTIONS 11350 [sym_kAsm]; ACTIONS 11352 [sym_kBegin];
   ACTIONS 11354 [sym_kCase]; ACTIONS 11076 [sym_kConst]; ACTIONS 11356 [sym_kFor];
   ACTIONS 11080 [sym_kFunction]; ACTIONS 11358 [sym_kGoto]; ACTIONS 11360 [sym_kIf];
   ACTIONS 105 [sym_kInherited]; ACTIONS 65 [sym_kNil]; ACTIONS 63 [sym_kNot];
   ACTIONS 11080 [sym_kProcedure]; ACTIONS 11362 [sym_kRaise]; ACTIONS 11364 [sym_kRepeat];
   ACTIONS 117 [sym_kString]; ACTIONS 11366 [sym_kTry]; ACTIONS 11092 [sym_kVar];
   ACTIONS 11368 [sym_kWhile]; ACTIONS 11370 [sym_kWith]].

(** State 1423. *)
Definition ts_parse_table_1423 : parse_row :=
  [STATE 14637 [sym_if]; STATE 14201 [sym_ifElse; sym_while; sym_repeat; sym_for; sym_foreach;
   sym_try; sym_case; sym_block; sym_asm; sym_with; sym_raise; sym_statement; sym_goto;
   sym_labeledStatement; sym__statement]; STATE 15512 [sym_assignment];
   STATE 11829 [sym_varAssignDef]; STATE 15512 [sym_varDef; sym_constDef];
   STATE 1444 [sym_label]; STATE 8444 [sym__expr; sym_exprConditional]; STATE 7765 [sym__ref;
   sym_lambda; sym_inherited; sym_exprDot; sym_exprDeref; sym_exprAs; sym_exprTpl;
   sym_exprSubscript; sym_exprCall]; STATE 8444 [sym_exprBinary; sym_exprUnary];
   STATE 7765 [sym_exprParens; sym_exprBrackets; sym__literal; sym_literalString];
   STATE 6994 [sym__literalString; sym_literalChar]; STATE 7765 [sym_literalNumber];
   STATE 7888 [sym__literalInt; sym__literalFloat]; STATE 6994 [aux_sym_literalString_repeat1];
   ACTIONS 10260 [anon_sym_SEMI]; ACTIONS 11060 [anon_sym_LBRACK]; ACTIONS 47 [anon_sym_LPAREN];
   ACTIONS 49 [aux_sym__literalString_token1]; ACTIONS 51 [anon_sym_POUND];
   ACTIONS 53 [aux_sym__literalInt_token1]; ACTIONS 55 [aux_sym__literalInt_token2;
   aux_sym__literalInt_token3]; ACTIONS 53 [aux_sym__literalFloat_token1]; ACTIONS 61 [sym_kAdd;
   sym_kSub]; ACTIONS 63 [sym_kAt]; ACTIONS 65 [sym_kTrue; sym_kFalse];
   ACTIONS 11322 [sym_labelNumber]; ACTIONS 3 [sym__space]; ACTIONS 5 [sym_ppDirective];
   ACTIONS 3 [sym_comment]; ACTIONS 65 [sym_ppFragmentExpr];
   ACTIONS 49 [sym__literalStringMultiline]; ACTIONS 11324 [sym_identifier];
   ACTIONS 73 [sym_kSpecialize]; ACTIONS 11394 [sym_kAsm]; ACTIONS 11396 [sym_kBegin];
   ACTIONS 11398 [sym_kCase]; ACTIONS 11076 [sym_kConst]; ACTIONS 11400 [sym_kFor];
   ACTIONS 11080 [sym_kFunction]; ACTIONS 11402 [sym_kGoto]; ACTIONS 11404 [sym_kIf];
   ACTIONS 105 [sym_kInherited]; ACTIONS 65 [sym_kNil]; ACTIONS 63 [sym_kNot];
   ACTIONS 11080 [sym_kProcedure]; ACTIONS 11406 [sym_kRaise]; ACTIONS 11408 [sym_kRepeat];
   ACTIONS 117 [sym_kString]; ACTIONS 11410 [sym_kTry]; ACTIONS 11092 [sym_kVar];
   ACTIONS 11412 [sym_kWhile]; ACTIONS 11414 [sym_kWith]].

(** State 1424. *)
Definition ts_parse_table_1424 : parse_row :=
  [STATE 15084 [sym_if]; STATE 14621 [sym_ifElse; sym_while; sym_repeat; sym_for; sym_foreach;
   sym_try; sym_case; sym_block; sym_asm; sym_with; sym_raise; sym_statement; sym_goto;
   sym_labeledStatement; sym__statement]; STATE 14151 [sym_assignment];
   STATE 11829 [sym_varAssignDef]; STATE 14151 [sym_varDef; sym_constDef];
   STATE 1464 [sym_label]; STATE 8337 [sym__expr; sym_exprConditional]; STATE 7765 [sym__ref;
   sym_lambda; sym_inherited; sym_exprDot; sym_exprDeref; sym_exprAs; sym_exprTpl;
   sym_exprSubscript; sym_exprCall]; STATE 8337 [sym_exprBinary; sym_exprUnary];
   STATE 7765 [sym_exprParens; sym_exprBrackets; sym__literal; sym_literalString];
   STATE 6994 [sym__literalString; sym_literalChar]; STATE 7765 [sym_literalNumber];
   STATE 7888 [sym__literalInt; sym__literalFloat]; STATE 6994 [aux_sym_literalString_repeat1];
   ACTIONS 10598 [anon_sym_SEMI]; ACTIONS 11060 [anon_sym_LBRACK]; ACTIONS 47 [anon_sym_LPAREN];
   ACTIONS 49 [aux_sym__literalString_token1]; ACTIONS 51 [anon_sym_POUND];
   ACTIONS 53 [aux_sym__literalInt_token1]; ACTIONS 55 [aux_sym__literalInt_token2;
   aux_sym__literalInt_token3]; ACTIONS 53 [aux_sym__literalFloat_token1]; ACTIONS 61 [sym_kAdd;
   sym_kSub]; ACTIONS 63 [sym_kAt]; ACTIONS 65 [sym_kTrue; sym_kFalse];
   ACTIONS 11322 [sym_labelNumber]; ACTIONS 3 [sym__space]; ACTIONS 5 [sym_ppDirective];
   ACTIONS 3 [sym_comment]; ACTIONS 65 [sym_ppFragmentExpr];
   ACTIONS 49 [sym__literalStringMultiline]; ACTIONS 11324 [sym_identifier];
   ACTIONS 73 [sym_kSpecialize]; ACTIONS 11438 [sym_kAsm]; ACTIONS 11440 [sym_kBegin];
   ACTIONS 11442 [sym_kCase]; ACTIONS 11076 [sym_kConst]; ACTIONS 11444 [sym_kFor];
   ACTIONS 11080 [sym_kFunction]; ACTIONS 11446 [sym_kGoto]; ACTIONS 11448 [sym_kIf];
   ACTIONS 105 [sym_kInherited]; ACTIONS 65 [sym_kNil]; ACTIONS 63 [sym_kNot];
   ACTIONS 11080 [sym_kProcedure]; ACTIONS 11450 [sym_kRaise]; ACTIONS 11452 [sym_kRepeat];
   ACTIONS 117 [sym_kString]; ACTIONS 11454 [sym_kTry]; ACTIONS 11092 [sym_kVar];
   ACTIONS 11456 [sym_kWhile]; ACTIONS 11458 [sym_kWith]].

(** State 1425. *)
Definition ts_parse_table_1425 : parse_row :=
  [STATE 15084 [sym_if]; STATE 14625 [sym_ifElse; sym_while; sym_repeat; sym_for; sym_foreach;
   sym_try; sym_case; sym_block; sym_asm; sym_with; sym_raise; sym_statement; sym_goto;
   sym_labeledStatement; sym__statement]; STATE 14151 [sym_assignment];
   STATE 11829 [sym_varAssignDef]; STATE 14151 [sym_varDef; sym_constDef];
   STATE 1464 [sym_label]; STATE 8337 [sym__expr; sym_exprConditional]; STATE 7765 [sym__ref;
   sym_lambda; sym_inherited; sym_exprDot; sym_exprDeref; sym_exprAs; sym_exprTpl;
   sym_exprSubscript; sym_exprCall]; STATE 8337 [sym_exprBinary; sym_exprUnary];
   STATE 7765 [sym_exprParens; sym_exprBrackets; sym__literal; sym_literalString];
   STATE 6994 [sym__literalString; sym_literalChar]; STATE 7765 [sym_literalNumber];
   STATE 7888 [sym__literalInt; sym__literalFloat]; STATE 6994 [aux_sym_literalString_repeat1];
   ACTIONS 10600 [anon_sym_SEMI]; ACTIONS 11060 [anon_sym_LBRACK]; ACTIONS 47 [anon_sym_LPAREN];
   ACTIONS 49 [aux_sym__literalString_token1]; ACTIONS 51 [anon_sym_POUND];
   ACTIONS 53 [aux_sym__literalInt_token1]; ACTIONS 55 [aux_sym__literalInt_token2;
   aux_sym__literalInt_token3]; ACTIONS 53 [aux_sym__literalFloat_token1]; ACTIONS 61 [sym_kAdd;
   sym_kSub]; ACTIONS 63 [sym_kAt]; ACTIONS 65 [sym_kTrue; sym_kFalse];
   ACTIONS 11322 [sym_labelNumber]; ACTIONS 3 [sym__space]; ACTIONS 5 [sym_ppDirective];
   ACTIONS 3 [sym_comment]; ACTIONS 65 [sym_ppFragmentExpr];
   ACTIONS 49 [sym__literalStringMultiline]; ACTIONS 11324 [sym_identifier];
   ACTIONS 73 [sym_kSpecialize]; ACTIONS 11438 [sym_kAsm]; ACTIONS 11440 [sym_kBegin];
   ACTIONS 11442 [sym_kCase]; ACTIONS 11076 [sym_kConst]; ACTIONS 11444 [sym_kFor];
   ACTIONS 11080 [sym_kFunction]; ACTIONS 11446 [sym_kGoto]; ACTIONS 11448 [sym_kIf];
   ACTIONS 105 [sym_kInherited]; ACTIONS 65 [sym_kNil]; ACTIONS 63 [sym_kNot];
   ACTIONS 11080 [sym_kProcedure]; ACTIONS 11450 [sym_kRaise]; ACTIONS 11452 [sym_kRepeat];
   ACTIONS 117 [sym_kString]; ACTIONS 11454 [sym_kTry]; ACTIONS 11092 [sym_kVar];
   ACTIONS 11456 [sym_kWhile]; ACTIONS 11458 [sym_kWith]].

(** State 1426. *)
Definition ts_parse_table_1426 : parse_row :=
  [STATE 15084 [sym_if]; STATE 14699 [sym_ifElse; sym_while; sym_repeat; sym_for; sym_foreach;
   sym_try; sym_case; sym_block; sym_asm; sym_with; sym_raise; sym_statement; sym_goto;
   sym_labeledStatement; sym__statement]; STATE 14151 [sym_assignment];
   STATE 11829 [sym_varAssignDef]; STATE 14151 [sym_varDef; sym_constDef];
   STATE 1464 [sym_label]; STATE 8337 [sym__expr; sym_exprConditional]; STATE 7765 [sym__ref;
   sym_lambda; sym_inherited; sym_exprDot; sym_exprDeref; sym_exprAs; sym_exprTpl;
   sym_exprSubscript; sym_exprCall]; STATE 8337 [sym_exprBinary; sym_exprUnary];
   STATE 7765 [sym_exprParens; sym_exprBrackets; sym__literal; sym_literalString];
   STATE 6994 [sym__literalString; sym_literalChar]; STATE 7765 [sym_literalNumber];
   STATE 7888 [sym__literalInt; sym__literalFloat]; STATE 6994 [aux_sym_literalString_repeat1];
   ACTIONS 10602 [anon_sym_SEMI]; ACTIONS 11060 [anon_sym_LBRACK]; ACTIONS 47 [anon_sym_LPAREN];
   ACTIONS 49 [aux_sym__literalString_token1]; ACTIONS 51 [anon_sym_POUND];
   ACTIONS 53 [aux_sym__literalInt_token1]; ACTIONS 55 [aux_sym__literalInt_token2;
   aux_sym__literalInt_token3]; ACTIONS 53 [aux_sym__literalFloat_token1]; ACTIONS 61 [sym_kAdd;
   sym_kSub]; ACTIONS 63 [sym_kAt]; ACTIONS 65 [sym_kTrue; sym_kFalse];
   ACTIONS 11322 [sym_labelNumber]; ACTIONS 3 [sym__space]; ACTIONS 5 [sym_ppDirective];
   ACTIONS 3 [sym_comment]; ACTIONS 65 [sym_ppFragmentExpr];
   ACTIONS 49 [sym__literalStringMultiline]; ACTIONS 11324 [sym_identifier];
   ACTIONS 73 [sym_kSpecialize]; ACTIONS 11438 [sym_kAsm]; ACTIONS 11440 [sym_kBegin];
   ACTIONS 11442 [sym_kCase]; ACTIONS 11076 [sym_kConst]; ACTIONS 11444 [sym_kFor];
   ACTIONS 11080 [sym_kFunction]; ACTIONS 11446 [sym_kGoto]; ACTIONS 11448 [sym_kIf];
   ACTIONS 105 [sym_kInherited]; ACTIONS 65 [sym_kNil]; ACTIONS 63 [sym_kNot];
   ACTIONS 11080 [sym_kProcedure]; ACTIONS 11450 [sym_kRaise]; ACTIONS 11452 [sym_kRepeat];
   ACTIONS 117 [sym_kString]; ACTIONS 11454 [sym_kTry]; ACTIONS 11092 [sym_kVar];
   ACTIONS 11456 [sym_kWhile]; ACTIONS 11458 [sym_kWith]].

(** State 1427. *)
Definition ts_parse_table_1427 : parse_row :=
  [STATE 9071 [sym_if]; STATE 9348 [sym_ifElse; sym_while; sym_repeat; sym_for; sym_foreach;
   sym_try; sym_case; sym_block; sym_asm; sym_with; sym_raise; sym_statement; sym_goto;
   sym__statement]; STATE 14769 [sym_assignment]; STATE 11829 [sym_varAssignDef];
   STATE 14769 [sym_varDef; sym_constDef]; STATE 6374 [sym_label]; STATE 8366 [sym__expr;
   sym_exprConditional]; STATE 7765 [sym__ref; sym_lambda; sym_inherited; sym_exprDot;
   sym_exprDeref; sym_exprAs; sym_exprTpl; sym_exprSubscript; sym_exprCall];
   STATE 8366 [sym_exprBinary; sym_exprUnary]; STATE 7765 [sym_exprParens; sym_exprBrackets;
   sym__literal; sym_literalString]; STATE 6994 [sym__literalString; sym_literalChar];
   STATE 7765 [sym_literalNumber]; STATE 7888 [sym__literalInt; sym__literalFloat];
   STATE 6374 [aux_sym_labeledStatement_repeat1]; STATE 6994 [aux_sym_literalString_repeat1];
   ACTIONS 9714 [anon_sym_SEMI]; ACTIONS 11060 [anon_sym_LBRACK]; ACTIONS 47 [anon_sym_LPAREN];
   ACTIONS 49 [aux_sym__literalString_token1]; ACTIONS 51 [anon_sym_POUND];
   ACTIONS 53 [aux_sym__literalInt_token1]; ACTIONS 55 [aux_sym__literalInt_token2;
   aux_sym__literalInt_token3]; ACTIONS 53 [aux_sym__literalFloat_token1]; ACTIONS 61 [sym_kAdd;
   sym_kSub]; ACTIONS 63 [sym_kAt]; ACTIONS 65 [sym_kTrue; sym_kFalse];
   ACTIONS 11322 [sym_labelNumber]; ACTIONS 3 [sym__space]; ACTIONS 5 [sym_ppDirective];
   ACTIONS 3 [sym_comment]; ACTIONS 65 [sym_ppFragmentExpr];
   ACTIONS 49 [sym__literalStringMultiline]; ACTIONS 11324 [sym_identifier];
   ACTIONS 73 [sym_kSpecialize]; ACTIONS 11416 [sym_kAsm]; ACTIONS 11418 [sym_kBegin];
   ACTIONS 11420 [sym_kCase]; ACTIONS 11076 [sym_kConst]; ACTIONS 11422 [sym_kFor];
   ACTIONS 11080 [sym_kFunction]; ACTIONS 11424 [sym_kGoto]; ACTIONS 11426 [sym_kIf];
   ACTIONS 105 [sym_kInherited]; ACTIONS 65 [sym_kNil]; ACTIONS 63 [sym_kNot];
   ACTIONS 11080 [sym_kProcedure]; ACTIONS 11428 [sym_kRaise]; ACTIONS 11430 [sym_kRepeat];
   ACTIONS 117 [sym_kString]; ACTIONS 11432 [sym_kTry]; ACTIONS 11092 [sym_kVar];
   ACTIONS 11434 [sym_kWhile]; ACTIONS 11436 [sym_kWith]].

(** State 1428. *)
Definition ts_parse_table_1428 : parse_row :=
  [STATE 14637 [sym_if]; STATE 14202 [sym_ifElse; sym_while; sym_repeat; sym_for; sym_foreach;
   sym_try; sym_case; sym_block; sym_asm; sym_with; sym_raise; sym_statement; sym_goto;
   sym_labeledStatement; sym__statement]; STATE 15512 [sym_assignment];
   STATE 11829 [sym_varAssignDef]; STATE 15512 [sym_varDef; sym_constDef];
   STATE 1444 [sym_label]; STATE 8444 [sym__expr; sym_exprConditional]; STATE 7765 [sym__ref;
   sym_lambda; sym_inherited; sym_exprDot; sym_exprDeref; sym_exprAs; sym_exprTpl;
   sym_exprSubscript; sym_exprCall]; STATE 8444 [sym_exprBinary; sym_exprUnary];
   STATE 7765 [sym_exprParens; sym_exprBrackets; sym__literal; sym_literalString];
   STATE 6994 [sym__literalString; sym_literalChar]; STATE 7765 [sym_literalNumber];
   STATE 7888 [sym__literalInt; sym__literalFloat]; STATE 6994 [aux_sym_literalString_repeat1];
   ACTIONS 10262 [anon_sym_SEMI]; ACTIONS 11060 [anon_sym_LBRACK]; ACTIONS 47 [anon_sym_LPAREN];
   ACTIONS 49 [aux_sym__literalString_token1]; ACTIONS 51 [anon_sym_POUND];
   ACTIONS 53 [aux_sym__literalInt_token1]; ACTIONS 55 [aux_sym__literalInt_token2;
   aux_sym__literalInt_token3]; ACTIONS 53 [aux_sym__literalFloat_token1]; ACTIONS 61 [sym_kAdd;
   sym_kSub]; ACTIONS 63 [sym_kAt]; ACTIONS 65 [sym_kTrue; sym_kFalse];
   ACTIONS 11322 [sym_labelNumber]; ACTIONS 3 [sym__space]; ACTIONS 5 [sym_ppDirective];
   ACTIONS 3 [sym_comment]; ACTIONS 65 [sym_ppFragmentExpr];
   ACTIONS 49 [sym__literalStringMultiline]; ACTIONS 11324 [sym_identifier];
   ACTIONS 73 [sym_kSpecialize]; ACTIONS 11394 [sym_kAsm]; ACTIONS 11396 [sym_kBegin];
   ACTIONS 11398 [sym_kCase]; ACTIONS 11076 [sym_kConst]; ACTIONS 11400 [sym_kFor];
   ACTIONS 11080 [sym_kFunction]; ACTIONS 11402 [sym_kGoto]; ACTIONS 11404 [sym_kIf];
   ACTIONS 105 [sym_kInherited]; ACTIONS 65 [sym_kNil]; ACTIONS 63 [sym_kNot];
   ACTIONS 11080 [sym_kProcedure]; ACTIONS 11406 [sym_kRaise]; ACTIONS 11408 [sym_kRepeat];
   ACTIONS 117 [sym_kString]; ACTIONS 11410 [sym_kTry]; ACTIONS 11092 [sym_kVar];
   ACTIONS 11412 [sym_kWhile]; ACTIONS 11414 [sym_kWith]].

(** State 1429. *)
Definition ts_parse_table_1429 : parse_row :=
  [STATE 6451 [sym_if]; STATE 6420 [sym_ifElse; sym_while; sym_repeat; sym_for; sym_foreach;
   sym_try; sym_case; sym_block; sym_asm; sym_with; sym_raise; sym_statement; sym_goto;
   sym_labeledStatement; sym__statement]; STATE 15358 [sym_assignment];
   STATE 11829 [sym_varAssignDef]; STATE 15358 [sym_varDef; sym_constDef];
   STATE 1415 [sym_label]; STATE 8210 [sym__expr; sym_exprConditional]; STATE 7765 [sym__ref;
   sym_lambda; sym_inherited; sym_exprDot; sym_exprDeref; sym_exprAs; sym_exprTpl;
   sym_exprSubscript; sym_exprCall]; STATE 8210 [sym_exprBinary; sym_exprUnary];
   STATE 7765 [sym_exprParens; sym_exprBrackets; sym__literal; sym_literalString];
   STATE 6994 [sym__literalString; sym_literalChar]; STATE 7765 [sym_literalNumber];
   STATE 7888 [sym__literalInt; sym__literalFloat]; STATE 6994 [aux_sym_literalString_repeat1];
   ACTIONS 10674 [anon_sym_SEMI]; ACTIONS 11060 [anon_sym_LBRACK]; ACTIONS 47 [anon_sym_LPAREN];
   ACTIONS 49 [aux_sym__literalString_token1]; ACTIONS 51 [anon_sym_POUND];
   ACTIONS 53 [aux_sym__literalInt_token1]; ACTIONS 55 [aux_sym__literalInt_token2;
   aux_sym__literalInt_token3]; ACTIONS 53 [aux_sym__literalFloat_token1]; ACTIONS 61 [sym_kAdd;
   sym_kSub]; ACTIONS 63 [sym_kAt]; ACTIONS 65 [sym_kTrue; sym_kFalse];
   ACTIONS 11322 [sym_labelNumber]; ACTIONS 3 [sym__space]; ACTIONS 5 [sym_ppDirective];
   ACTIONS 3 [sym_comment]; ACTIONS 65 [sym_ppFragmentExpr];
   ACTIONS 49 [sym__literalStringMultiline]; ACTIONS 11324 [sym_identifier];
   ACTIONS 73 [sym_kSpecialize]; ACTIONS 11350 [sym_kAsm]; ACTIONS 11352 [sym_kBegin];
   ACTIONS 11354 [sym_kCase]; ACTIONS 11076 [sym_kConst]; ACTIONS 11356 [sym_kFor];
   ACTIONS 11080 [sym_kFunction]; ACTIONS 11358 [sym_kGoto]; ACTIONS 11360 [sym_kIf];
   ACTIONS 105 [sym_kInherited]; ACTIONS 65 [sym_kNil]; ACTIONS 63 [sym_kNot];
   ACTIONS 11080 [sym_kProcedure]; ACTIONS 11362 [sym_kRaise]; ACTIONS 11364 [sym_kRepeat];
   ACTIONS 117 [sym_kString]; ACTIONS 11366 [sym_kTry]; ACTIONS 11092 [sym_kVar];
   ACTIONS 11368 [sym_kWhile]; ACTIONS 11370 [sym_kWith]].

(** State 1430. *)
Definition ts_parse_table_1430 : parse_row :=
  [STATE 6451 [sym_if]; STATE 6422 [sym_ifElse; sym_while; sym_repeat; sym_for; sym_foreach;
   sym_try; sym_case; sym_block; sym_asm; sym_with; sym_raise; sym_statement; sym_goto;
   sym_labeledStatement; sym__statement]; STATE 15358 [sym_assignment];
   STATE 11829 [sym_varAssignDef]; STATE 15358 [sym_varDef; sym_constDef];
   STATE 1415 [sym_label]; STATE 8210 [sym__expr; sym_exprConditional]; STATE 7765 [sym__ref;
   sym_lambda; sym_inherited; sym_exprDot; sym_exprDeref; sym_exprAs; sym_exprTpl;
   sym_exprSubscript; sym_exprCall]; STATE 8210 [sym_exprBinary; sym_exprUnary];
   STATE 7765 [sym_exprParens; sym_exprBrackets; sym__literal; sym_literalString];
   STATE 6994 [sym__literalString; sym_literalChar]; STATE 7765 [sym_literalNumber];
   STATE 7888 [sym__literalInt; sym__literalFloat]; STATE 6994 [aux_sym_literalString_repeat1];
   ACTIONS 10676 [anon_sym_SEMI]; ACTIONS 11060 [anon_sym_LBRACK]; ACTIONS 47 [anon_sym_LPAREN];
   ACTIONS 49 [aux_sym__literalString_token1]; ACTIONS 51 [anon_sym_POUND];
   ACTIONS 53 [aux_sym__literalInt_token1]; ACTIONS 55 [aux_sym__literalInt_token2;
   aux_sym__literalInt_token3]; ACTIONS 53 [aux_sym__literalFloat_token1]; ACTIONS 61 [sym_kAdd;
   sym_kSub]; ACTIONS 63 [sym_kAt]; ACTIONS 65 [sym_kTrue; sym_kFalse];
   ACTIONS 11322 [sym_labelNumber]; ACTIONS 3 [sym__space]; ACTIONS 5 [sym_ppDirective];
   ACTIONS 3 [sym_comment]; ACTIONS 65 [sym_ppFragmentExpr];
   ACTIONS 49 [sym__literalStringMultiline]; ACTIONS 11324 [sym_identifier];
   ACTIONS 73 [sym_kSpecialize]; ACTIONS 11350 [sym_kAsm]; ACTIONS 11352 [sym_kBegin];
   ACTIONS 11354 [sym_kCase]; ACTIONS 11076 [sym_kConst]; ACTIONS 11356 [sym_kFor];
   ACTIONS 11080 [sym_kFunction]; ACTIONS 11358 [sym_kGoto]; ACTIONS 11360 [sym_kIf];
   ACTIONS 105 [sym_kInherited]; ACTIONS 65 [sym_kNil]; ACTIONS 63 [sym_kNot];
   ACTIONS 11080 [sym_kProcedure]; ACTIONS 11362 [sym_kRaise]; ACTIONS 11364 [sym_kRepeat];
   ACTIONS 117 [sym_kString]; ACTIONS 11366 [sym_kTry]; ACTIONS 11092 [sym_kVar];
   ACTIONS 11368 [sym_kWhile]; ACTIONS 11370 [sym_kWith]].

(** State 1431. *)
Definition ts_parse_table_1431 : parse_row :=
  [STATE 14637 [sym_if]; STATE 14219 [sym_ifElse; sym_while; sym_repeat; sym_for; sym_foreach;
   sym_try; sym_case; sym_block; sym_asm; sym_with; sym_raise; sym_statement; sym_goto;
   sym_labeledStatement; sym__statement]; STATE 15512 [sym_assignment];
   STATE 11829 [sym_varAssignDef]; STATE 15512 [sym_varDef; sym_constDef];
   STATE 1444 [sym_label]; STATE 8444 [sym__expr; sym_exprConditional]; STATE 7765 [sym__ref;
   sym_lambda; sym_inherited; sym_exprDot; sym_exprDeref; sym_exprAs; sym_exprTpl;
   sym_exprSubscript; sym_exprCall]; STATE 8444 [sym_exprBinary; sym_exprUnary];
   STATE 7765 [sym_exprParens; sym_exprBrackets; sym__literal; sym_literalString];
   STATE 6994 [sym__literalString; sym_literalChar]; STATE 7765 [sym_literalNumber];
   STATE 7888 [sym__literalInt; sym__literalFloat]; STATE 6994 [aux_sym_literalString_repeat1];
   ACTIONS 10264 [anon_sym_SEMI]; ACTIONS 11060 [anon_sym_LBRACK]; ACTIONS 47 [anon_sym_LPAREN];
   ACTIONS 49 [aux_sym__literalString_token1]; ACTIONS 51 [anon_sym_POUND];
   ACTIONS 53 [aux_sym__literalInt_token1]; ACTIONS 55 [aux_sym__literalInt_token2;
   aux_sym__literalInt_token3]; ACTIONS 53 [aux_sym__literalFloat_token1]; ACTIONS 61 [sym_kAdd;
   sym_kSub]; ACTIONS 63 [sym_kAt]; ACTIONS 65 [sym_kTrue; sym_kFalse];
   ACTIONS 11322 [sym_labelNumber]; ACTIONS 3 [sym__space]; ACTIONS 5 [sym_ppDirective];
   ACTIONS 3 [sym_comment]; ACTIONS 65 [sym_ppFragmentExpr];
   ACTIONS 49 [sym__literalStringMultiline]; ACTIONS 11324 [sym_identifier];
   ACTIONS 73 [sym_kSpecialize]; ACTIONS 11394 [sym_kAsm]; ACTIONS 11396 [sym_kBegin];
   ACTIONS 11398 [sym_kCase]; ACTIONS 11076 [sym_kConst]; ACTIONS 11400 [sym_kFor];
   ACTIONS 11080 [sym_kFunction]; ACTIONS 11402 [sym_kGoto]; ACTIONS 11404 [sym_kIf];
   ACTIONS 105 [sym_kInherited]; ACTIONS 65 [sym_kNil]; ACTIONS 63 [sym_kNot];
   ACTIONS 11080 [sym_kProcedure]; ACTIONS 11406 [sym_kRaise]; ACTIONS 11408 [sym_kRepeat];
   ACTIONS 117 [sym_kString]; ACTIONS 11410 [sym_kTry]; ACTIONS 11092 [sym_kVar];
   ACTIONS 11412 [sym_kWhile]; ACTIONS 11414 [sym_kWith]].

(** State 1432. *)
Definition ts_parse_table_1432 : parse_row :=
  [STATE 6747 [sym_if]; STATE 6753 [sym_ifElse; sym_while; sym_repeat; sym_for; sym_foreach;
   sym_try; sym_case; sym_block; sym_asm; sym_with; sym_raise; sym_statement; sym_goto;
   sym__statement]; STATE 15181 [sym_assignment]; STATE 11829 [sym_varAssignDef];
   STATE 15181 [sym_varDef; sym_constDef]; STATE 6374 [sym_label]; STATE 8409 [sym__expr;
   sym_exprConditional]; STATE 7765 [sym__ref; sym_lambda; sym_inherited; sym_exprDot;
   sym_exprDeref; sym_exprAs; sym_exprTpl; sym_exprSubscript; sym_exprCall];
   STATE 8409 [sym_exprBinary; sym_exprUnary]; STATE 7765 [sym_exprParens; sym_exprBrackets;
   sym__literal; sym_literalString]; STATE 6994 [sym__literalString; sym_literalChar];
   STATE 7765 [sym_literalNumber]; STATE 7888 [sym__literalInt; sym__literalFloat];
   STATE 6374 [aux_sym_labeledStatement_repeat1]; STATE 6994 [aux_sym_literalString_repeat1];
   ACTIONS 10754 [anon_sym_SEMI]; ACTIONS 11060 [anon_sym_LBRACK]; ACTIONS 47 [anon_sym_LPAREN];
   ACTIONS 49 [aux_sym__literalString_token1]; ACTIONS 51 [anon_sym_POUND];
   ACTIONS 53 [aux_sym__literalInt_token1]; ACTIONS 55 [aux_sym__literalInt_token2;
   aux_sym__literalInt_token3]; ACTIONS 53 [aux_sym__literalFloat_token1]; ACTIONS 61 [sym_kAdd;
   sym_kSub]; ACTIONS 63 [sym_kAt]; ACTIONS 65 [sym_kTrue; sym_kFalse];
   ACTIONS 11322 [sym_labelNumber]; ACTIONS 3 [sym__space]; ACTIONS 5 [sym_ppDirective];
   ACTIONS 3 [sym_comment]; ACTIONS 65 [sym_ppFragmentExpr];
   ACTIONS 49 [sym__literalStringMultiline]; ACTIONS 11324 [sym_identifier];
   ACTIONS 73 [sym_kSpecialize]; ACTIONS 11372 [sym_kAsm]; ACTIONS 11374 [sym_kBegin];
   ACTIONS 11376 [sym_kCase]; ACTIONS 11076 [sym_kConst]; ACTIONS 11378 [sym_kFor];
   ACTIONS 11080 [sym_kFunction]; ACTIONS 11380 [sym_kGoto]; ACTIONS 11382 [sym_kIf];
   ACTIONS 105 [sym_kInherited]; ACTIONS 65 [sym_kNil]; ACTIONS 63 [sym_kNot];
   ACTIONS 11080 [sym_kProcedure]; ACTIONS 11384 [sym_kRaise]; ACTIONS 11386 [sym_kRepeat];
   ACTIONS 117 [sym_kString]; ACTIONS 11388 [sym_kTry]; ACTIONS 11092 [sym_kVar];
   ACTIONS 11390 [sym_kWhile]; ACTIONS 11392 [sym_kWith]].

(** State 1433. *)
Definition ts_parse_table_1433 : parse_row :=
  [STATE 6451 [sym_if]; STATE 6424 [sym_ifElse; sym_while; sym_repeat; sym_for; sym_foreach;
   sym_try; sym_case; sym_block; sym_asm; sym_with; sym_raise; sym_statement; sym_goto;
   sym_labeledStatement; sym__statement]; STATE 15358 [sym_assignment];
   STATE 11829 [sym_varAssignDef]; STATE 15358 [sym_varDef; sym_constDef];
   STATE 1415 [sym_label]; STATE 8210 [sym__expr; sym_exprConditional]; STATE 7765 [sym__ref;
   sym_lambda; sym_inherited; sym_exprDot; sym_exprDeref; sym_exprAs; sym_exprTpl;
   sym_exprSubscript; sym_exprCall]; STATE 8210 [sym_exprBinary; sym_exprUnary];
   STATE 7765 [sym_exprParens; sym_exprBrackets; sym__literal; sym_literalString];
   STATE 6994 [sym__literalString; sym_literalChar]; STATE 7765 [sym_literalNumber];
   STATE 7888 [sym__literalInt; sym__literalFloat]; STATE 6994 [aux_sym_literalString_repeat1];
   ACTIONS 10678 [anon_sym_SEMI]; ACTIONS 11060 [anon_sym_LBRACK]; ACTIONS 47 [anon_sym_LPAREN];
   ACTIONS 49 [aux_sym__literalString_token1]; ACTIONS 51 [anon_sym_POUND];
   ACTIONS 53 [aux_sym__literalInt_token1]; ACTIONS 55 [aux_sym__literalInt_token2;
   aux_sym__literalInt_token3]; ACTIONS 53 [aux_sym__literalFloat_token1]; ACTIONS 61 [sym_kAdd;
   sym_kSub]; ACTIONS 63 [sym_kAt]; ACTIONS 65 [sym_kTrue; sym_kFalse];
   ACTIONS 11322 [sym_labelNumber]; ACTIONS 3 [sym__space]; ACTIONS 5 [sym_ppDirective];
   ACTIONS 3 [sym_comment]; ACTIONS 65 [sym_ppFragmentExpr];
   ACTIONS 49 [sym__literalStringMultiline]; ACTIONS 11324 [sym_identifier];
   ACTIONS 73 [sym_kSpecialize]; ACTIONS 11350 [sym_kAsm]; ACTIONS 11352 [sym_kBegin];
   ACTIONS 11354 [sym_kCase]; ACTIONS 11076 [sym_kConst]; ACTIONS 11356 [sym_kFor];
   ACTIONS 11080 [sym_kFunction]; ACTIONS 11358 [sym_kGoto]; ACTIONS 11360 [sym_kIf];
   ACTIONS 105 [sym_kInherited]; ACTIONS 65 [sym_kNil]; ACTIONS 63 [sym_kNot];
   ACTIONS 11080 [sym_kProcedure]; ACTIONS 11362 [sym_kRaise]; ACTIONS 11364 [sym_kRepeat];
   ACTIONS 117 [sym_kString]; ACTIONS 11366 [sym_kTry]; ACTIONS 11092 [sym_kVar];
   ACTIONS 11368 [sym_kWhile]; ACTIONS 11370 [sym_kWith]].

(** State 1434. *)
Definition ts_parse_table_1434 : parse_row :=
  [STATE 9071 [sym_if]; STATE 9069 [sym_ifElse; sym_while; sym_repeat; sym_for; sym_foreach;
   sym_try; sym_case; sym_block; sym_asm; sym_with; sym_raise; sym_statement; sym_goto;
   sym_labeledStatement; sym__statement]; STATE 14769 [sym_assignment];
   STATE 11829 [sym_varAssignDef]; STATE 14769 [sym_varDef; sym_constDef];
   STATE 1409 [sym_label]; STATE 8366 [sym__expr; sym_exprConditional]; STATE 7765 [sym__ref;
   sym_lambda; sym_inherited; sym_exprDot; sym_exprDeref; sym_exprAs; sym_exprTpl;
   sym_exprSubscript; sym_exprCall]; STATE 8366 [sym_exprBinary; sym_exprUnary];
   STATE 7765 [sym_exprParens; sym_exprBrackets; sym__literal; sym_literalString];
   STATE 6994 [sym__literalString; sym_literalChar]; STATE 7765 [sym_literalNumber];
   STATE 7888 [sym__literalInt; sym__literalFloat]; STATE 6994 [aux_sym_literalString_repeat1];
   ACTIONS 7966 [anon_sym_SEMI]; ACTIONS 11060 [anon_sym_LBRACK]; ACTIONS 47 [anon_sym_LPAREN];
   ACTIONS 49 [aux_sym__literalString_token1]; ACTIONS 51 [anon_sym_POUND];
   ACTIONS 53 [aux_sym__literalInt_token1]; ACTIONS 55 [aux_sym__literalInt_token2;
   aux_sym__literalInt_token3]; ACTIONS 53 [aux_sym__literalFloat_token1]; ACTIONS 61 [sym_kAdd;
   sym_kSub]; ACTIONS 63 [sym_kAt]; ACTIONS 65 [sym_kTrue; sym_kFalse];
   ACTIONS 11322 [sym_labelNumber]; ACTIONS 3 [sym__space]; ACTIONS 5 [sym_ppDirective];
   ACTIONS 3 [sym_comment]; ACTIONS 65 [sym_ppFragmentExpr];
   ACTIONS 49 [sym__literalStringMultiline]; ACTIONS 11324 [sym_identifier];
   ACTIONS 73 [sym_kSpecialize]; ACTIONS 11416 [sym_kAsm]; ACTIONS 11418 [sym_kBegin];
   ACTIONS 11420 [sym_kCase]; ACTIONS 11076 [sym_kConst]; ACTIONS 11422 [sym_kFor];
   ACTIONS 11080 [sym_kFunction]; ACTIONS 11424 [sym_kGoto]; ACTIONS 11426 [sym_kIf];
   ACTIONS 105 [sym_kInherited]; ACTIONS 65 [sym_kNil]; ACTIONS 63 [sym_kNot];
   ACTIONS 11080 [sym_kProcedure]; ACTIONS 11428 [sym_kRaise]; ACTIONS 11430 [sym_kRepeat];
   ACTIONS 117 [sym_kString]; ACTIONS 11432 [sym_kTry]; ACTIONS 11092 [sym_kVar];
   ACTIONS 11434 [sym_kWhile]; ACTIONS 11436 [sym_kWith]].

(** State 1435. *)
Definition ts_parse_table_1435 : parse_row :=
  [STATE 6463 [sym_if]; STATE 6470 [sym_ifElse; sym_while; sym_repeat; sym_for; sym_foreach;
   sym_try; sym_case; sym_block; sym_asm; sym_with; sym_raise; sym_statement; sym_goto;
   sym_labeledStatement; sym__statement]; STATE 14997 [sym_assignment];
   STATE 11829 [sym_varAssignDef]; STATE 14997 [sym_varDef; sym_constDef];
   STATE 1420 [sym_label]; STATE 8298 [sym__expr; sym_exprConditional]; STATE 7765 [sym__ref;
   sym_lambda; sym_inherited; sym_exprDot; sym_exprDeref; sym_exprAs; sym_exprTpl;
   sym_exprSubscript; sym_exprCall]; STATE 8298 [sym_exprBinary; sym_exprUnary];
   STATE 7765 [sym_exprParens; sym_exprBrackets; sym__literal; sym_literalString];
   STATE 6994 [sym__literalString; sym_literalChar]; STATE 7765 [sym_literalNumber];
   STATE 7888 [sym__literalInt; sym__literalFloat]; STATE 6994 [aux_sym_literalString_repeat1];
   ACTIONS 10104 [anon_sym_SEMI]; ACTIONS 11060 [anon_sym_LBRACK]; ACTIONS 47 [anon_sym_LPAREN];
   ACTIONS 49 [aux_sym__literalString_token1]; ACTIONS 51 [anon_sym_POUND];
   ACTIONS 53 [aux_sym__literalInt_token1]; ACTIONS 55 [aux_sym__literalInt_token2;
   aux_sym__literalInt_token3]; ACTIONS 53 [aux_sym__literalFloat_token1]; ACTIONS 61 [sym_kAdd;
   sym_kSub]; ACTIONS 63 [sym_kAt]; ACTIONS 65 [sym_kTrue; sym_kFalse];
   ACTIONS 11322 [sym_labelNumber]; ACTIONS 3 [sym__space]; ACTIONS 5 [sym_ppDirective];
   ACTIONS 3 [sym_comment]; ACTIONS 65 [sym_ppFragmentExpr];
   ACTIONS 49 [sym__literalStringMultiline]; ACTIONS 11324 [sym_identifier];
   ACTIONS 73 [sym_kSpecialize]; ACTIONS 11326 [sym_kAsm]; ACTIONS 11328 [sym_kBegin];
   ACTIONS 11330 [sym_kCase]; ACTIONS 11076 [sym_kConst]; ACTIONS 11332 [sym_kFor];
   ACTIONS 11080 [sym_kFunction]; ACTIONS 11334 [sym_kGoto]; ACTIONS 11336 [sym_kIf];
   ACTIONS 105 [sym_kInherited]; ACTIONS 65 [sym_kNil]; ACTIONS 63 [sym_kNot];
   ACTIONS 11080 [sym_kProcedure]; ACTIONS 11338 [sym_kRaise]; ACTIONS 11340 [sym_kRepeat];
   ACTIONS 117 [sym_kString]; ACTIONS 11342 [sym_kTry]; ACTIONS 11092 [sym_kVar];
   ACTIONS 11344 [sym_kWhile]; ACTIONS 11346 [sym_kWith]].

(** State 1436. *)
Definition ts_parse_table_1436 : parse_row :=
  [STATE 1310 [sym_if]; STATE 1361 [sym_ifElse; sym_while; sym_repeat; sym_for; sym_foreach;
   sym_try; sym_case; sym_block; sym_asm; sym_with; sym_raise; sym_statement; sym_goto;
   sym_labeledStatement; sym__statement]; STATE 15141 [sym_assignment];
   STATE 11829 [sym_varAssignDef]; STATE 15141 [sym_varDef; sym_constDef];
   STATE 1411 [sym_label]; STATE 8220 [sym__expr; sym_exprConditional]; STATE 7765 [sym__ref;
   sym_lambda; sym_inherited; sym_exprDot; sym_exprDeref; sym_exprAs; sym_exprTpl;
   sym_exprSubscript; sym_exprCall]; STATE 8220 [sym_exprBinary; sym_exprUnary];
   STATE 7765 [sym_exprParens; sym_exprBrackets; sym__literal; sym_literalString];
   STATE 6994 [sym__literalString; sym_literalChar]; STATE 7765 [sym_literalNumber];
   STATE 7888 [sym__literalInt; sym__literalFloat]; STATE 6994 [aux_sym_literalString_repeat1];
   ACTIONS 10542 [anon_sym_SEMI]; ACTIONS 11060 [anon_sym_LBRACK]; ACTIONS 47 [anon_sym_LPAREN];
   ACTIONS 49 [aux_sym__literalString_token1]; ACTIONS 51 [anon_sym_POUND];
   ACTIONS 53 [aux_sym__literalInt_token1]; ACTIONS 55 [aux_sym__literalInt_token2;
   aux_sym__literalInt_token3]; ACTIONS 53 [aux_sym__literalFloat_token1]; ACTIONS 61 [sym_kAdd;
   sym_kSub]; ACTIONS 63 [sym_kAt]; ACTIONS 65 [sym_kTrue; sym_kFalse];
   ACTIONS 11322 [sym_labelNumber]; ACTIONS 3 [sym__space]; ACTIONS 5 [sym_ppDirective];
   ACTIONS 3 [sym_comment]; ACTIONS 65 [sym_ppFragmentExpr];
   ACTIONS 49 [sym__literalStringMultiline]; ACTIONS 11324 [sym_identifier];
   ACTIONS 73 [sym_kSpecialize]; ACTIONS 83 [sym_kAsm]; ACTIONS 85 [sym_kBegin];
   ACTIONS 87 [sym_kCase]; ACTIONS 11076 [sym_kConst]; ACTIONS 97 [sym_kFor];
   ACTIONS 11080 [sym_kFunction]; ACTIONS 101 [sym_kGoto]; ACTIONS 103 [sym_kIf];
   ACTIONS 105 [sym_kInherited]; ACTIONS 65 [sym_kNil]; ACTIONS 63 [sym_kNot];
   ACTIONS 11080 [sym_kProcedure]; ACTIONS 111 [sym_kRaise]; ACTIONS 113 [sym_kRepeat];
   ACTIONS 117 [sym_kString]; ACTIONS 121 [sym_kTry]; ACTIONS 11092 [sym_kVar];
   ACTIONS 129 [sym_kWhile]; ACTIONS 131 [sym_kWith]].

(** State 1437. *)
Definition ts_parse_table_1437 : parse_row :=
  [STATE 6747 [sym_if]; STATE 1437 [sym_ifElse; sym_while; sym_repeat; sym_for; sym_foreach;
   sym_try; sym_case; sym_block; sym_asm; sym_with; sym_raise; sym_statement; sym_goto;
   sym__statement]; STATE 15181 [sym_assignment]; STATE 11829 [sym_varAssignDef];
   STATE 15181 [sym_varDef; sym_constDef]; STATE 1437 [sym_label]; STATE 8409 [sym__expr;
   sym_exprConditional]; STATE 7765 [sym__ref; sym_lambda; sym_inherited; sym_exprDot;
   sym_exprDeref; sym_exprAs; sym_exprTpl; sym_exprSubscript; sym_exprCall];
   STATE 8409 [sym_exprBinary; sym_exprUnary]; STATE 7765 [sym_exprParens; sym_exprBrackets;
   sym__literal; sym_literalString]; STATE 6994 [sym__literalString; sym_literalChar];
   STATE 7765 [sym_literalNumber]; STATE 7888 [sym__literalInt; sym__literalFloat];
   STATE 1437 [aux_sym_exceptionElse_repeat1]; STATE 6994 [aux_sym_literalString_repeat1];
   ACTIONS 11460 [anon_sym_SEMI]; ACTIONS 11463 [anon_sym_LBRACK];
   ACTIONS 11466 [anon_sym_LPAREN]; ACTIONS 11469 [aux_sym__literalString_token1];
   ACTIONS 11472 [anon_sym_POUND]; ACTIONS 11475 [aux_sym__literalInt_token1];
   ACTIONS 11478 [aux_sym__literalInt_token2; aux_sym__literalInt_token3];
   ACTIONS 11475 [aux_sym__literalFloat_token1]; ACTIONS 11481 [sym_kAdd; sym_kSub];
   ACTIONS 11484 [sym_kAt]; ACTIONS 11487 [sym_kTrue; sym_kFalse];
   ACTIONS 11490 [sym_labelNumber]; ACTIONS 3 [sym__space]; ACTIONS 5 [sym_ppDirective];
   ACTIONS 3 [sym_comment]; ACTIONS 11487 [sym_ppFragmentExpr];
   ACTIONS 11469 [sym__literalStringMultiline]; ACTIONS 11493 [sym_identifier];
   ACTIONS 11496 [sym_kSpecialize]; ACTIONS 11499 [sym_kAsm]; ACTIONS 11502 [sym_kBegin];
   ACTIONS 11505 [sym_kCase]; ACTIONS 11508 [sym_kConst]; ACTIONS 11511 [sym_kFor];
   ACTIONS 11514 [sym_kFunction]; ACTIONS 11517 [sym_kGoto]; ACTIONS 11520 [sym_kIf];
   ACTIONS 11523 [sym_kInherited]; ACTIONS 11487 [sym_kNil]; ACTIONS 11484 [sym_kNot];
   ACTIONS 11514 [sym_kProcedure]; ACTIONS 11526 [sym_kRaise]; ACTIONS 11529 [sym_kRepeat];
   ACTIONS 11532 [sym_kString]; ACTIONS 11535 [sym_kTry]; ACTIONS 11538 [sym_kVar];
   ACTIONS 11541 [sym_kWhile]; ACTIONS 11544 [sym_kWith]].

(** State 1438. *)
Definition ts_parse_table_1438 : parse_row :=
  [STATE 6463 [sym_if]; STATE 6471 [sym_ifElse; sym_while; sym_repeat; sym_for; sym_foreach;
   sym_try; sym_case; sym_block; sym_asm; sym_with; sym_raise; sym_statement; sym_goto;
   sym_labeledStatement; sym__statement]; STATE 14997 [sym_assignment];
   STATE 11829 [sym_varAssignDef]; STATE 14997 [sym_varDef; sym_constDef];
   STATE 1420 [sym_label]; STATE 8298 [sym__expr; sym_exprConditional]; STATE 7765 [sym__ref;
   sym_lambda; sym_inherited; sym_exprDot; sym_exprDeref; sym_exprAs; sym_exprTpl;
   sym_exprSubscript; sym_exprCall]; STATE 8298 [sym_exprBinary; sym_exprUnary];
   STATE 7765 [sym_exprParens; sym_exprBrackets; sym__literal; sym_literalString];
   STATE 6994 [sym__literalString; sym_literalChar]; STATE 7765 [sym_literalNumber];
   STATE 7888 [sym__literalInt; sym__literalFloat]; STATE 6994 [aux_sym_literalString_repeat1];
   ACTIONS 10132 [anon_sym_SEMI]; ACTIONS 11060 [anon_sym_LBRACK]; ACTIONS 47 [anon_sym_LPAREN];
   ACTIONS 49 [aux_sym__literalString_token1]; ACTIONS 51 [anon_sym_POUND];
   ACTIONS 53 [aux_sym__literalInt_token1]; ACTIONS 55 [aux_sym__literalInt_token2;
   aux_sym__literalInt_token3]; ACTIONS 53 [aux_sym__literalFloat_token1]; ACTIONS 61 [sym_kAdd;
   sym_kSub]; ACTIONS 63 [sym_kAt]; ACTIONS 65 [sym_kTrue; sym_kFalse];
   ACTIONS 11322 [sym_labelNumber]; ACTIONS 3 [sym__space]; ACTIONS 5 [sym_ppDirective];
   ACTIONS 3 [sym_comment]; ACTIONS 65 [sym_ppFragmentExpr];
   ACTIONS 49 [sym__literalStringMultiline]; ACTIONS 11324 [sym_identifier];
   ACTIONS 73 [sym_kSpecialize]; ACTIONS 11326 [sym_kAsm]; ACTIONS 11328 [sym_kBegin];
   ACTIONS 11330 [sym_kCase]; ACTIONS 11076 [sym_kConst]; ACTIONS 11332 [sym_kFor];
   ACTIONS 11080 [sym_kFunction]; ACTIONS 11334 [sym_kGoto]; ACTIONS 11336 [sym_kIf];
   ACTIONS 105 [sym_kInherited]; ACTIONS 65 [sym_kNil]; ACTIONS 63 [sym_kNot];
   ACTIONS 11080 [sym_kProcedure]; ACTIONS 11338 [sym_kRaise]; ACTIONS 11340 [sym_kRepeat];
   ACTIONS 117 [sym_kString]; ACTIONS 11342 [sym_kTry]; ACTIONS 11092 [sym_kVar];
   ACTIONS 11344 [sym_kWhile]; ACTIONS 11346 [sym_kWith]].

(** State 1439. *)
Definition ts_parse_table_1439 : parse_row :=
  [STATE 6463 [sym_if]; STATE 6489 [sym_ifElse; sym_while; sym_repeat; sym_for; sym_foreach;
   sym_try; sym_case; sym_block; sym_asm; sym_with; sym_raise; sym_statement; sym_goto;
   sym_labeledStatement; sym__statement]; STATE 14997 [sym_assignment];
   STATE 11829 [sym_varAssignDef]; STATE 14997 [sym_varDef; sym_constDef];
   STATE 1420 [sym_label]; STATE 8298 [sym__expr; sym_exprConditional]; STATE 7765 [sym__ref;
   sym_lambda; sym_inherited; sym_exprDot; sym_exprDeref; sym_exprAs; sym_exprTpl;
   sym_exprSubscript; sym_exprCall]; STATE 8298 [sym_exprBinary; sym_exprUnary];
   STATE 7765 [sym_exprParens; sym_exprBrackets; sym__literal; sym_literalString];
   STATE 6994 [sym__literalString; sym_literalChar]; STATE 7765 [sym_literalNumber];
   STATE 7888 [sym__literalInt; sym__literalFloat]; STATE 6994 [aux_sym_literalString_repeat1];
   ACTIONS 10266 [anon_sym_SEMI]; ACTIONS 11060 [anon_sym_LBRACK]; ACTIONS 47 [anon_sym_LPAREN];
   ACTIONS 49 [aux_sym__literalString_token1]; ACTIONS 51 [anon_sym_POUND];
   ACTIONS 53 [aux_sym__literalInt_token1]; ACTIONS 55 [aux_sym__literalInt_token2;
   aux_sym__literalInt_token3]; ACTIONS 53 [aux_sym__literalFloat_token1]; ACTIONS 61 [sym_kAdd;
   sym_kSub]; ACTIONS 63 [sym_kAt]; ACTIONS 65 [sym_kTrue; sym_kFalse];
   ACTIONS 11322 [sym_labelNumber]; ACTIONS 3 [sym__space]; ACTIONS 5 [sym_ppDirective];
   ACTIONS 3 [sym_comment]; ACTIONS 65 [sym_ppFragmentExpr];
   ACTIONS 49 [sym__literalStringMultiline]; ACTIONS 11324 [sym_identifier];
   ACTIONS 73 [sym_kSpecialize]; ACTIONS 11326 [sym_kAsm]; ACTIONS 11328 [sym_kBegin];
   ACTIONS 11330 [sym_kCase]; ACTIONS 11076 [sym_kConst]; ACTIONS 11332 [sym_kFor];
   ACTIONS 11080 [sym_kFunction]; ACTIONS 11334 [sym_kGoto]; ACTIONS 11336 [sym_kIf];
   ACTIONS 105 [sym_kInherited]; ACTIONS 65 [sym_kNil]; ACTIONS 63 [sym_kNot];
   ACTIONS 11080 [sym_kProcedure]; ACTIONS 11338 [sym_kRaise]; ACTIONS 11340 [sym_kRepeat];
   ACTIONS 117 [sym_kString]; ACTIONS 11342 [sym_kTry]; ACTIONS 11092 [sym_kVar];
   ACTIONS 11344 [sym_kWhile]; ACTIONS 11346 [sym_kWith]].

(** State 1440. *)
Definition ts_parse_table_1440 : parse_row :=
  [STATE 14637 [sym_if]; STATE 15341 [sym_ifElse; sym_while; sym_repeat; sym_for; sym_foreach;
   sym_try; sym_case; sym_block; sym_asm; sym_with; sym_raise; sym_statement; sym_goto;
   sym_labeledStatement; sym__statement]; STATE 15512 [sym_assignment];
   STATE 11829 [sym_varAssignDef]; STATE 15512 [sym_varDef; sym_constDef];
   STATE 1444 [sym_label]; STATE 8444 [sym__expr; sym_exprConditional]; STATE 7765 [sym__ref;
   sym_lambda; sym_inherited; sym_exprDot; sym_exprDeref; sym_exprAs; sym_exprTpl;
   sym_exprSubscript; sym_exprCall]; STATE 8444 [sym_exprBinary; sym_exprUnary];
   STATE 7765 [sym_exprParens; sym_exprBrackets; sym__literal; sym_literalString];
   STATE 6994 [sym__literalString; sym_literalChar]; STATE 7765 [sym_literalNumber];
   STATE 7888 [sym__literalInt; sym__literalFloat]; STATE 6994 [aux_sym_literalString_repeat1];
   ACTIONS 11547 [anon_sym_SEMI]; ACTIONS 11060 [anon_sym_LBRACK]; ACTIONS 47 [anon_sym_LPAREN];
   ACTIONS 49 [aux_sym__literalString_token1]; ACTIONS 51 [anon_sym_POUND];
   ACTIONS 53 [aux_sym__literalInt_token1]; ACTIONS 55 [aux_sym__literalInt_token2;
   aux_sym__literalInt_token3]; ACTIONS 53 [aux_sym__literalFloat_token1]; ACTIONS 61 [sym_kAdd;
   sym_kSub]; ACTIONS 63 [sym_kAt]; ACTIONS 65 [sym_kTrue; sym_kFalse];
   ACTIONS 11322 [sym_labelNumber]; ACTIONS 3 [sym__space]; ACTIONS 5 [sym_ppDirective];
   ACTIONS 3 [sym_comment]; ACTIONS 65 [sym_ppFragmentExpr];
   ACTIONS 49 [sym__literalStringMultiline]; ACTIONS 11324 [sym_identifier];
   ACTIONS 73 [sym_kSpecialize]; ACTIONS 11394 [sym_kAsm]; ACTIONS 11396 [sym_kBegin];
   ACTIONS 11398 [sym_kCase]; ACTIONS 11076 [sym_kConst]; ACTIONS 11400 [sym_kFor];
   ACTIONS 11080 [sym_kFunction]; ACTIONS 11402 [sym_kGoto]; ACTIONS 11404 [sym_kIf];
   ACTIONS 105 [sym_kInherited]; ACTIONS 65 [sym_kNil]; ACTIONS 63 [sym_kNot];
   ACTIONS 11080 [sym_kProcedure]; ACTIONS 11406 [sym_kRaise]; ACTIONS 11408 [sym_kRepeat];
   ACTIONS 117 [sym_kString]; ACTIONS 11410 [sym_kTry]; ACTIONS 11092 [sym_kVar];
   ACTIONS 11412 [sym_kWhile]; ACTIONS 11414 [sym_kWith]].

(** State 1441. *)
Definition ts_parse_table_1441 : parse_row :=
  [STATE 9071 [sym_if]; STATE 9067 [sym_ifElse; sym_while; sym_repeat; sym_for; sym_foreach;
   sym_try; sym_case; sym_block; sym_asm; sym_with; sym_raise; sym_statement; sym_goto;
   sym_labeledStatement; sym__statement]; STATE 14769 [sym_assignment];
   STATE 11829 [sym_varAssignDef]; STATE 14769 [sym_varDef; sym_constDef];
   STATE 1409 [sym_label]; STATE 8366 [sym__expr; sym_exprConditional]; STATE 7765 [sym__ref;
   sym_lambda; sym_inherited; sym_exprDot; sym_exprDeref; sym_exprAs; sym_exprTpl;
   sym_exprSubscript; sym_exprCall]; STATE 8366 [sym_exprBinary; sym_exprUnary];
   STATE 7765 [sym_exprParens; sym_exprBrackets; sym__literal; sym_literalString];
   STATE 6994 [sym__literalString; sym_literalChar]; STATE 7765 [sym_literalNumber];
   STATE 7888 [sym__literalInt; sym__literalFloat]; STATE 6994 [aux_sym_literalString_repeat1];
   ACTIONS 9322 [anon_sym_SEMI]; ACTIONS 11060 [anon_sym_LBRACK]; ACTIONS 47 [anon_sym_LPAREN];
   ACTIONS 49 [aux_sym__literalString_token1]; ACTIONS 51 [anon_sym_POUND];
   ACTIONS 53 [aux_sym__literalInt_token1]; ACTIONS 55 [aux_sym__literalInt_token2;
   aux_sym__literalInt_token3]; ACTIONS 53 [aux_sym__literalFloat_token1]; ACTIONS 61 [sym_kAdd;
   sym_kSub]; ACTIONS 63 [sym_kAt]; ACTIONS 65 [sym_kTrue; sym_kFalse];
   ACTIONS 11322 [sym_labelNumber]; ACTIONS 3 [sym__space]; ACTIONS 5 [sym_ppDirective];
   ACTIONS 3 [sym_comment]; ACTIONS 65 [sym_ppFragmentExpr];
   ACTIONS 49 [sym__literalStringMultiline]; ACTIONS 11324 [sym_identifier];
   ACTIONS 73 [sym_kSpecialize]; ACTIONS 11416 [sym_kAsm]; ACTIONS 11418 [sym_kBegin];
   ACTIONS 11420 [sym_kCase]; ACTIONS 11076 [sym_kConst]; ACTIONS 11422 [sym_kFor];
   ACTIONS 11080 [sym_kFunction]; ACTIONS 11424 [sym_kGoto]; ACTIONS 11426 [sym_kIf];
   ACTIONS 105 [sym_kInherited]; ACTIONS 65 [sym_kNil]; ACTIONS 63 [sym_kNot];
   ACTIONS 11080 [sym_kProcedure]; ACTIONS 11428 [sym_kRaise]; ACTIONS 11430 [sym_kRepeat];
   ACTIONS 117 [sym_kString]; ACTIONS 11432 [sym_kTry]; ACTIONS 11092 [sym_kVar];
   ACTIONS 11434 [sym_kWhile]; ACTIONS 11436 [sym_kWith]].

(** State 1442. *)
Definition ts_parse_table_1442 : parse_row :=
  [STATE 9071 [sym_if]; STATE 9068 [sym_ifElse; sym_while; sym_repeat; sym_for; sym_foreach;
   sym_try; sym_case; sym_block; sym_asm; sym_with; sym_raise; sym_statement; sym_goto;
   sym_labeledStatement; sym__statement]; STATE 14769 [sym_assignment];
   STATE 11829 [sym_varAssignDef]; STATE 14769 [sym_varDef; sym_constDef];
   STATE 1409 [sym_label]; STATE 8366 [sym__expr; sym_exprConditional]; STATE 7765 [sym__ref;
   sym_lambda; sym_inherited; sym_exprDot; sym_exprDeref; sym_exprAs; sym_exprTpl;
   sym_exprSubscript; sym_exprCall]; STATE 8366 [sym_exprBinary; sym_exprUnary];
   STATE 7765 [sym_exprParens; sym_exprBrackets; sym__literal; sym_literalString];
   STATE 6994 [sym__literalString; sym_literalChar]; STATE 7765 [sym_literalNumber];
   STATE 7888 [sym__literalInt; sym__literalFloat]; STATE 6994 [aux_sym_literalString_repeat1];
   ACTIONS 9324 [anon_sym_SEMI]; ACTIONS 11060 [anon_sym_LBRACK]; ACTIONS 47 [anon_sym_LPAREN];
   ACTIONS 49 [aux_sym__literalString_token1]; ACTIONS 51 [anon_sym_POUND];
   ACTIONS 53 [aux_sym__literalInt_token1]; ACTIONS 55 [aux_sym__literalInt_token2;
   aux_sym__literalInt_token3]; ACTIONS 53 [aux_sym__literalFloat_token1]; ACTIONS 61 [sym_kAdd;
   sym_kSub]; ACTIONS 63 [sym_kAt]; ACTIONS 65 [sym_kTrue; sym_kFalse];
   ACTIONS 11322 [sym_labelNumber]; ACTIONS 3 [sym__space]; ACTIONS 5 [sym_ppDirective];
   ACTIONS 3 [sym_comment]; ACTIONS 65 [sym_ppFragmentExpr];
   ACTIONS 49 [sym__literalStringMultiline]; ACTIONS 11324 [sym_identifier];
   ACTIONS 73 [sym_kSpecialize]; ACTIONS 11416 [sym_kAsm]; ACTIONS 11418 [sym_kBegin];
   ACTIONS 11420 [sym_kCase]; ACTIONS 11076 [sym_kConst]; ACTIONS 11422 [sym_kFor];
   ACTIONS 11080 [sym_kFunction]; ACTIONS 11424 [sym_kGoto]; ACTIONS 11426 [sym_kIf];
   ACTIONS 105 [sym_kInherited]; ACTIONS 65 [sym_kNil]; ACTIONS 63 [sym_kNot];
   ACTIONS 11080 [sym_kProcedure]; ACTIONS 11428 [sym_kRaise]; ACTIONS 11430 [sym_kRepeat];
   ACTIONS 117 [sym_kString]; ACTIONS 11432 [sym_kTry]; ACTIONS 11092 [sym_kVar];
   ACTIONS 11434 [sym_kWhile]; ACTIONS 11436 [sym_kWith]].

(** State 1443. *)
Definition ts_parse_table_1443 : parse_row :=
  [STATE 9071 [sym_if]; STATE 9081 [sym_ifElse; sym_while; sym_repeat; sym_for; sym_foreach;
   sym_try; sym_case; sym_block; sym_asm; sym_with; sym_raise; sym_statement; sym_goto;
   sym_labeledStatement; sym__statement]; STATE 14769 [sym_assignment];
   STATE 11829 [sym_varAssignDef]; STATE 14769 [sym_varDef; sym_constDef];
   STATE 1409 [sym_label]; STATE 8366 [sym__expr; sym_exprConditional]; STATE 7765 [sym__ref;
   sym_lambda; sym_inherited; sym_exprDot; sym_exprDeref; sym_exprAs; sym_exprTpl;
   sym_exprSubscript; sym_exprCall]; STATE 8366 [sym_exprBinary; sym_exprUnary];
   STATE 7765 [sym_exprParens; sym_exprBrackets; sym__literal; sym_literalString];
   STATE 6994 [sym__literalString; sym_literalChar]; STATE 7765 [sym_literalNumber];
   STATE 7888 [sym__literalInt; sym__literalFloat]; STATE 6994 [aux_sym_literalString_repeat1];
   ACTIONS 9326 [anon_sym_SEMI]; ACTIONS 11060 [anon_sym_LBRACK]; ACTIONS 47 [anon_sym_LPAREN];
   ACTIONS 49 [aux_sym__literalString_token1]; ACTIONS 51 [anon_sym_POUND];
   ACTIONS 53 [aux_sym__literalInt_token1]; ACTIONS 55 [aux_sym__literalInt_token2;
   aux_sym__literalInt_token3]; ACTIONS 53 [aux_sym__literalFloat_token1]; ACTIONS 61 [sym_kAdd;
   sym_kSub]; ACTIONS 63 [sym_kAt]; ACTIONS 65 [sym_kTrue; sym_kFalse];
   ACTIONS 11322 [sym_labelNumber]; ACTIONS 3 [sym__space]; ACTIONS 5 [sym_ppDirective];
   ACTIONS 3 [sym_comment]; ACTIONS 65 [sym_ppFragmentExpr];
   ACTIONS 49 [sym__literalStringMultiline]; ACTIONS 11324 [sym_identifier];
   ACTIONS 73 [sym_kSpecialize]; ACTIONS 11416 [sym_kAsm]; ACTIONS 11418 [sym_kBegin];
   ACTIONS 11420 [sym_kCase]; ACTIONS 11076 [sym_kConst]; ACTIONS 11422 [sym_kFor];
   ACTIONS 11080 [sym_kFunction]; ACTIONS 11424 [sym_kGoto]; ACTIONS 11426 [sym_kIf];
   ACTIONS 105 [sym_kInherited]; ACTIONS 65 [sym_kNil]; ACTIONS 63 [sym_kNot];
   ACTIONS 11080 [sym_kProcedure]; ACTIONS 11428 [sym_kRaise]; ACTIONS 11430 [sym_kRepeat];
   ACTIONS 117 [sym_kString]; ACTIONS 11432 [sym_kTry]; ACTIONS 11092 [sym_kVar];
   ACTIONS 11434 [sym_kWhile]; ACTIONS 11436 [sym_kWith]].

(** State 1444. *)
Definition ts_parse_table_1444 : parse_row :=
  [STATE 14637 [sym_if]; STATE 15663 [sym_ifElse; sym_while; sym_repeat; sym_for; sym_foreach;
   sym_try; sym_case; sym_block; sym_asm; sym_with; sym_raise; sym_statement; sym_goto;
   sym__statement]; STATE 15512 [sym_assignment]; STATE 11829 [sym_varAssignDef];
   STATE 15512 [sym_varDef; sym_constDef]; STATE 1470 [sym_label]; STATE 8444 [sym__expr;
   sym_exprConditional]; STATE 7765 [sym__ref; sym_lambda; sym_inherited; sym_exprDot;
   sym_exprDeref; sym_exprAs; sym_exprTpl; sym_exprSubscript; sym_exprCall];
   STATE 8444 [sym_exprBinary; sym_exprUnary]; STATE 7765 [sym_exprParens; sym_exprBrackets;
   sym__literal; sym_literalString]; STATE 6994 [sym__literalString; sym_literalChar];
   STATE 7765 [sym_literalNumber]; STATE 7888 [sym__literalInt; sym__literalFloat];
   STATE 1470 [aux_sym_labeledStatement_repeat1]; STATE 6994 [aux_sym_literalString_repeat1];
   ACTIONS 10836 [anon_sym_SEMI]; ACTIONS 11060 [anon_sym_LBRACK]; ACTIONS 47 [anon_sym_LPAREN];
   ACTIONS 49 [aux_sym__literalString_token1]; ACTIONS 51 [anon_sym_POUND];
   ACTIONS 53 [aux_sym__literalInt_token1]; ACTIONS 55 [aux_sym__literalInt_token2;
   aux_sym__literalInt_token3]; ACTIONS 53 [aux_sym__literalFloat_token1]; ACTIONS 61 [sym_kAdd;
   sym_kSub]; ACTIONS 63 [sym_kAt]; ACTIONS 65 [sym_kTrue; sym_kFalse];
   ACTIONS 11322 [sym_labelNumber]; ACTIONS 3 [sym__space]; ACTIONS 5 [sym_ppDirective];
   ACTIONS 3 [sym_comment]; ACTIONS 65 [sym_ppFragmentExpr];
   ACTIONS 49 [sym__literalStringMultiline]; ACTIONS 11324 [sym_identifier];
   ACTIONS 73 [sym_kSpecialize]; ACTIONS 11394 [sym_kAsm]; ACTIONS 11396 [sym_kBegin];
   ACTIONS 11398 [sym_kCase]; ACTIONS 11076 [sym_kConst]; ACTIONS 11400 [sym_kFor];
   ACTIONS 11080 [sym_kFunction]; ACTIONS 11402 [sym_kGoto]; ACTIONS 11404 [sym_kIf];
   ACTIONS 105 [sym_kInherited]; ACTIONS 65 [sym_kNil]; ACTIONS 63 [sym_kNot];
   ACTIONS 11080 [sym_kProcedure]; ACTIONS 11406 [sym_kRaise]; ACTIONS 11408 [sym_kRepeat];
   ACTIONS 117 [sym_kString]; ACTIONS 11410 [sym_kTry]; ACTIONS 11092 [sym_kVar];
   ACTIONS 11412 [sym_kWhile]; ACTIONS 11414 [sym_kWith]].

(** State 1445. *)
Definition ts_parse_table_1445 : parse_row :=
  [STATE 9071 [sym_if]; STATE 9099 [sym_ifElse; sym_while; sym_repeat; sym_for; sym_foreach;
   sym_try; sym_case; sym_block; sym_asm; sym_with; sym_raise; sym_statement; sym_goto];
   STATE 9098 [sym_labeledStatement]; STATE 9099 [sym__statement]; STATE 14769 [sym_assignment];
   STATE 11829 [sym_varAssignDef]; STATE 14769 [sym_varDef; sym_constDef];
   STATE 1409 [sym_label]; STATE 8366 [sym__expr; sym_exprConditional]; STATE 7765 [sym__ref;
   sym_lambda; sym_inherited; sym_exprDot; sym_exprDeref; sym_exprAs; sym_exprTpl;
   sym_exprSubscript; sym_exprCall]; STATE 8366 [sym_exprBinary; sym_exprUnary];
   STATE 7765 [sym_exprParens; sym_exprBrackets; sym__literal; sym_literalString];
   STATE 6994 [sym__literalString; sym_literalChar]; STATE 7765 [sym_literalNumber];
   STATE 7888 [sym__literalInt; sym__literalFloat]; STATE 6994 [aux_sym_literalString_repeat1];
   ACTIONS 9328 [anon_sym_SEMI]; ACTIONS 11060 [anon_sym_LBRACK]; ACTIONS 47 [anon_sym_LPAREN];
   ACTIONS 49 [aux_sym__literalString_token1]; ACTIONS 51 [anon_sym_POUND];
   ACTIONS 53 [aux_sym__literalInt_token1]; ACTIONS 55 [aux_sym__literalInt_token2;
   aux_sym__literalInt_token3]; ACTIONS 53 [aux_sym__literalFloat_token1]; ACTIONS 61 [sym_kAdd;
   sym_kSub]; ACTIONS 63 [sym_kAt]; ACTIONS 65 [sym_kTrue; sym_kFalse];
   ACTIONS 11322 [sym_labelNumber]; ACTIONS 3 [sym__space]; ACTIONS 5 [sym_ppDirective];
   ACTIONS 3 [sym_comment]; ACTIONS 65 [sym_ppFragmentExpr];
   ACTIONS 49 [sym__literalStringMultiline]; ACTIONS 11324 [sym_identifier];
   ACTIONS 73 [sym_kSpecialize]; ACTIONS 11416 [sym_kAsm]; ACTIONS 11418 [sym_kBegin];
   ACTIONS 11420 [sym_kCase]; ACTIONS 11076 [sym_kConst]; ACTIONS 11422 [sym_kFor];
   ACTIONS 11080 [sym_kFunction]; ACTIONS 11424 [sym_kGoto]; ACTIONS 11426 [sym_kIf];
   ACTIONS 105 [sym_kInherited]; ACTIONS 65 [sym_kNil]; ACTIONS 63 [sym_kNot];
   ACTIONS 11080 [sym_kProcedure]; ACTIONS 11428 [sym_kRaise]; ACTIONS 11430 [sym_kRepeat];
   ACTIONS 117 [sym_kString]; ACTIONS 11432 [sym_kTry]; ACTIONS 11092 [sym_kVar];
   ACTIONS 11434 [sym_kWhile]; ACTIONS 11436 [sym_kWith]].

(** State 1446. *)
Definition ts_parse_table_1446 : parse_row :=
  [STATE 6451 [sym_if]; STATE 6428 [sym_ifElse; sym_while; sym_repeat; sym_for; sym_foreach;
   sym_try; sym_case; sym_block; sym_asm; sym_with; sym_raise; sym_statement; sym_goto;
   sym__statement]; STATE 15358 [sym_assignment]; STATE 11829 [sym_varAssignDef];
   STATE 15358 [sym_varDef; sym_constDef]; STATE 6374 [sym_label]; STATE 8210 [sym__expr;
   sym_exprConditional]; STATE 7765 [sym__ref; sym_lambda; sym_inherited; sym_exprDot;
   sym_exprDeref; sym_exprAs; sym_exprTpl; sym_exprSubscript; sym_exprCall];
   STATE 8210 [sym_exprBinary; sym_exprUnary]; STATE 7765 [sym_exprParens; sym_exprBrackets;
   sym__literal; sym_literalString]; STATE 6994 [sym__literalString; sym_literalChar];
   STATE 7765 [sym_literalNumber]; STATE 7888 [sym__literalInt; sym__literalFloat];
   STATE 6374 [aux_sym_labeledStatement_repeat1]; STATE 6994 [aux_sym_literalString_repeat1];
   ACTIONS 10834 [anon_sym_SEMI]; ACTIONS 11060 [anon_sym_LBRACK]; ACTIONS 47 [anon_sym_LPAREN];
   ACTIONS 49 [aux_sym__literalString_token1]; ACTIONS 51 [anon_sym_POUND];
   ACTIONS 53 [aux_sym__literalInt_token1]; ACTIONS 55 [aux_sym__literalInt_token2;
   aux_sym__literalInt_token3]; ACTIONS 53 [aux_sym__literalFloat_token1]; ACTIONS 61 [sym_kAdd;
   sym_kSub]; ACTIONS 63 [sym_kAt]; ACTIONS 65 [sym_kTrue; sym_kFalse];
   ACTIONS 11322 [sym_labelNumber]; ACTIONS 3 [sym__space]; ACTIONS 5 [sym_ppDirective];
   ACTIONS 3 [sym_comment]; ACTIONS 65 [sym_ppFragmentExpr];
   ACTIONS 49 [sym__literalStringMultiline]; ACTIONS 11324 [sym_identifier];
   ACTIONS 73 [sym_kSpecialize]; ACTIONS 11350 [sym_kAsm]; ACTIONS 11352 [sym_kBegin];
   ACTIONS 11354 [sym_kCase]; ACTIONS 11076 [sym_kConst]; ACTIONS 11356 [sym_kFor];
   ACTIONS 11080 [sym_kFunction]; ACTIONS 11358 [sym_kGoto]; ACTIONS 11360 [sym_kIf];
   ACTIONS 105 [sym_kInherited]; ACTIONS 65 [sym_kNil]; ACTIONS 63 [sym_kNot];
   ACTIONS 11080 [sym_kProcedure]; ACTIONS 11362 [sym_kRaise]; ACTIONS 11364 [sym_kRepeat];
   ACTIONS 117 [sym_kString]; ACTIONS 11366 [sym_kTry]; ACTIONS 11092 [sym_kVar];
   ACTIONS 11368 [sym_kWhile]; ACTIONS 11370 [sym_kWith]].

(** State 1447. *)
Definition ts_parse_table_1447 : parse_row :=
  [STATE 1310 [sym_if]; STATE 1364 [sym_ifElse; sym_while; sym_repeat; sym_for; sym_foreach;
   sym_try; sym_case; sym_block; sym_asm; sym_with; sym_raise; sym_statement; sym_goto;
   sym_labeledStatement; sym__statement]; STATE 15141 [sym_assignment];
   STATE 11829 [sym_varAssignDef]; STATE 15141 [sym_varDef; sym_constDef];
   STATE 1411 [sym_label]; STATE 8220 [sym__expr; sym_exprConditional]; STATE 7765 [sym__ref;
   sym_lambda; sym_inherited; sym_exprDot; sym_exprDeref; sym_exprAs; sym_exprTpl;
   sym_exprSubscript; sym_exprCall]; STATE 8220 [sym_exprBinary; sym_exprUnary];
   STATE 7765 [sym_exprParens; sym_exprBrackets; sym__literal; sym_literalString];
   STATE 6994 [sym__literalString; sym_literalChar]; STATE 7765 [sym_literalNumber];
   STATE 7888 [sym__literalInt; sym__literalFloat]; STATE 6994 [aux_sym_literalString_repeat1];
   ACTIONS 10548 [anon_sym_SEMI]; ACTIONS 11060 [anon_sym_LBRACK]; ACTIONS 47 [anon_sym_LPAREN];
   ACTIONS 49 [aux_sym__literalString_token1]; ACTIONS 51 [anon_sym_POUND];
   ACTIONS 53 [aux_sym__literalInt_token1]; ACTIONS 55 [aux_sym__literalInt_token2;
   aux_sym__literalInt_token3]; ACTIONS 53 [aux_sym__literalFloat_token1]; ACTIONS 61 [sym_kAdd;
   sym_kSub]; ACTIONS 63 [sym_kAt]; ACTIONS 65 [sym_kTrue; sym_kFalse];
   ACTIONS 11322 [sym_labelNumber]; ACTIONS 3 [sym__space]; ACTIONS 5 [sym_ppDirective];
   ACTIONS 3 [sym_comment]; ACTIONS 65 [sym_ppFragmentExpr];
   ACTIONS 49 [sym__literalStringMultiline]; ACTIONS 11324 [sym_identifier];
   ACTIONS 73 [sym_kSpecialize]; ACTIONS 83 [sym_kAsm]; ACTIONS 85 [sym_kBegin];
   ACTIONS 87 [sym_kCase]; ACTIONS 11076 [sym_kConst]; ACTIONS 97 [sym_kFor];
   ACTIONS 11080 [sym_kFunction]; ACTIONS 101 [sym_kGoto]; ACTIONS 103 [sym_kIf];
   ACTIONS 105 [sym_kInherited]; ACTIONS 65 [sym_kNil]; ACTIONS 63 [sym_kNot];
   ACTIONS 11080 [sym_kProcedure]; ACTIONS 111 [sym_kRaise]; ACTIONS 113 [sym_kRepeat];
   ACTIONS 117 [sym_kString]; ACTIONS 121 [sym_kTry]; ACTIONS 11092 [sym_kVar];
   ACTIONS 129 [sym_kWhile]; ACTIONS 131 [sym_kWith]].

(** State 1448. *)
Definition ts_parse_table_1448 : parse_row :=
  [STATE 9071 [sym_if]; STATE 9109 [sym_ifElse; sym_while; sym_repeat; sym_for; sym_foreach;
   sym_try; sym_case; sym_block; sym_asm; sym_with; sym_raise; sym_statement; sym_goto;
   sym_labeledStatement; sym__statement]; STATE 14769 [sym_assignment];
   STATE 11829 [sym_varAssignDef]; STATE 14769 [sym_varDef; sym_constDef];
   STATE 1409 [sym_label]; STATE 8366 [sym__expr; sym_exprConditional]; STATE 7765 [sym__ref;
   sym_lambda; sym_inherited; sym_exprDot; sym_exprDeref; sym_exprAs; sym_exprTpl;
   sym_exprSubscript; sym_exprCall]; STATE 8366 [sym_exprBinary; sym_exprUnary];
   STATE 7765 [sym_exprParens; sym_exprBrackets; sym__literal; sym_literalString];
   STATE 6994 [sym__literalString; sym_literalChar]; STATE 7765 [sym_literalNumber];
   STATE 7888 [sym__literalInt; sym__literalFloat]; STATE 6994 [aux_sym_literalString_repeat1];
   ACTIONS 9330 [anon_sym_SEMI]; ACTIONS 11060 [anon_sym_LBRACK]; ACTIONS 47 [anon_sym_LPAREN];
   ACTIONS 49 [aux_sym__literalString_token1]; ACTIONS 51 [anon_sym_POUND];
   ACTIONS 53 [aux_sym__literalInt_token1]; ACTIONS 55 [aux_sym__literalInt_token2;
   aux_sym__literalInt_token3]; ACTIONS 53 [aux_sym__literalFloat_token1]; ACTIONS 61 [sym_kAdd;
   sym_kSub]; ACTIONS 63 [sym_kAt]; ACTIONS 65 [sym_kTrue; sym_kFalse];
   ACTIONS 11322 [sym_labelNumber]; ACTIONS 3 [sym__space]; ACTIONS 5 [sym_ppDirective];
   ACTIONS 3 [sym_comment]; ACTIONS 65 [sym_ppFragmentExpr];
   ACTIONS 49 [sym__literalStringMultiline]; ACTIONS 11324 [sym_identifier];
   ACTIONS 73 [sym_kSpecialize]; ACTIONS 11416 [sym_kAsm]; ACTIONS 11418 [sym_kBegin];
   ACTIONS 11420 [sym_kCase]; ACTIONS 11076 [sym_kConst]; ACTIONS 11422 [sym_kFor];
   ACTIONS 11080 [sym_kFunction]; ACTIONS 11424 [sym_kGoto]; ACTIONS 11426 [sym_kIf];
   ACTIONS 105 [sym_kInherited]; ACTIONS 65 [sym_kNil]; ACTIONS 63 [sym_kNot];
   ACTIONS 11080 [sym_kProcedure]; ACTIONS 11428 [sym_kRaise]; ACTIONS 11430 [sym_kRepeat];
   ACTIONS 117 [sym_kString]; ACTIONS 11432 [sym_kTry]; ACTIONS 11092 [sym_kVar];
   ACTIONS 11434 [sym_kWhile]; ACTIONS 11436 [sym_kWith]].

(** State 1449. *)
Definition ts_parse_table_1449 : parse_row :=
  [STATE 9071 [sym_if]; STATE 9117 [sym_ifElse; sym_while; sym_repeat; sym_for; sym_foreach;
   sym_try; sym_case; sym_block; sym_asm; sym_with; sym_raise; sym_statement; sym_goto;
   sym_labeledStatement; sym__statement]; STATE 14769 [sym_assignment];
   STATE 11829 [sym_varAssignDef]; STATE 14769 [sym_varDef; sym_constDef];
   STATE 1409 [sym_label]; STATE 8366 [sym__expr; sym_exprConditional]; STATE 7765 [sym__ref;
   sym_lambda; sym_inherited; sym_exprDot; sym_exprDeref; sym_exprAs; sym_exprTpl;
   sym_exprSubscript; sym_exprCall]; STATE 8366 [sym_exprBinary; sym_exprUnary];
   STATE 7765 [sym_exprParens; sym_exprBrackets; sym__literal; sym_literalString];
   STATE 6994 [sym__literalString; sym_literalChar]; STATE 7765 [sym_literalNumber];
   STATE 7888 [sym__literalInt; sym__literalFloat]; STATE 6994 [aux_sym_literalString_repeat1];
   ACTIONS 9332 [anon_sym_SEMI]; ACTIONS 11060 [anon_sym_LBRACK]; ACTIONS 47 [anon_sym_LPAREN];
   ACTIONS 49 [aux_sym__literalString_token1]; ACTIONS 51 [anon_sym_POUND];
   ACTIONS 53 [aux_sym__literalInt_token1]; ACTIONS 55 [aux_sym__literalInt_token2;
   aux_sym__literalInt_token3]; ACTIONS 53 [aux_sym__literalFloat_token1]; ACTIONS 61 [sym_kAdd;
   sym_kSub]; ACTIONS 63 [sym_kAt]; ACTIONS 65 [sym_kTrue; sym_kFalse];
   ACTIONS 11322 [sym_labelNumber]; ACTIONS 3 [sym__space]; ACTIONS 5 [sym_ppDirective];
   ACTIONS 3 [sym_comment]; ACTIONS 65 [sym_ppFragmentExpr];
   ACTIONS 49 [sym__literalStringMultiline]; ACTIONS 11324 [sym_identifier];
   ACTIONS 73 [sym_kSpecialize]; ACTIONS 11416 [sym_kAsm]; ACTIONS 11418 [sym_kBegin];
   ACTIONS 11420 [sym_kCase]; ACTIONS 11076 [sym_kConst]; ACTIONS 11422 [sym_kFor];
   ACTIONS 11080 [sym_kFunction]; ACTIONS 11424 [sym_kGoto]; ACTIONS 11426 [sym_kIf];
   ACTIONS 105 [sym_kInherited]; ACTIONS 65 [sym_kNil]; ACTIONS 63 [sym_kNot];
   ACTIONS 11080 [sym_kProcedure]; ACTIONS 11428 [sym_kRaise]; ACTIONS 11430 [sym_kRepeat];
   ACTIONS 117 [sym_kString]; ACTIONS 11432 [sym_kTry]; ACTIONS 11092 [sym_kVar];
   ACTIONS 11434 [sym_kWhile]; ACTIONS 11436 [sym_kWith]].

(** State 1450. *)
Definition ts_parse_table_1450 : parse_row :=
  [STATE 9071 [sym_if]; STATE 9121 [sym_ifElse; sym_while; sym_repeat; sym_for; sym_foreach;
   sym_try; sym_case; sym_block; sym_asm; sym_with; sym_raise; sym_statement; sym_goto;
   sym_labeledStatement; sym__statement]; STATE 14769 [sym_assignment];
   STATE 11829 [sym_varAssignDef]; STATE 14769 [sym_varDef; sym_constDef];
   STATE 1409 [sym_label]; STATE 8366 [sym__expr; sym_exprConditional]; STATE 7765 [sym__ref;
   sym_lambda; sym_inherited; sym_exprDot; sym_exprDeref; sym_exprAs; sym_exprTpl;
   sym_exprSubscript; sym_exprCall]; STATE 8366 [sym_exprBinary; sym_exprUnary];
   STATE 7765 [sym_exprParens; sym_exprBrackets; sym__literal; sym_literalString];
   STATE 6994 [sym__literalString; sym_literalChar]; STATE 7765 [sym_literalNumber];
   STATE 7888 [sym__literalInt; sym__literalFloat]; STATE 6994 [aux_sym_literalString_repeat1];
   ACTIONS 9334 [anon_sym_SEMI]; ACTIONS 11060 [anon_sym_LBRACK]; ACTIONS 47 [anon_sym_LPAREN];
   ACTIONS 49 [aux_sym__literalString_token1]; ACTIONS 51 [anon_sym_POUND];
   ACTIONS 53 [aux_sym__literalInt_token1]; ACTIONS 55 [aux_sym__literalInt_token2;
   aux_sym__literalInt_token3]; ACTIONS 53 [aux_sym__literalFloat_token1]; ACTIONS 61 [sym_kAdd;
   sym_kSub]; ACTIONS 63 [sym_kAt]; ACTIONS 65 [sym_kTrue; sym_kFalse];
   ACTIONS 11322 [sym_labelNumber]; ACTIONS 3 [sym__space]; ACTIONS 5 [sym_ppDirective];
   ACTIONS 3 [sym_comment]; ACTIONS 65 [sym_ppFragmentExpr];
   ACTIONS 49 [sym__literalStringMultiline]; ACTIONS 11324 [sym_identifier];
   ACTIONS 73 [sym_kSpecialize]; ACTIONS 11416 [sym_kAsm]; ACTIONS 11418 [sym_kBegin];
   ACTIONS 11420 [sym_kCase]; ACTIONS 11076 [sym_kConst]; ACTIONS 11422 [sym_kFor];
   ACTIONS 11080 [sym_kFunction]; ACTIONS 11424 [sym_kGoto]; ACTIONS 11426 [sym_kIf];
   ACTIONS 105 [sym_kInherited]; ACTIONS 65 [sym_kNil]; ACTIONS 63 [sym_kNot];
   ACTIONS 11080 [sym_kProcedure]; ACTIONS 11428 [sym_kRaise]; ACTIONS 11430 [sym_kRepeat];
   ACTIONS 117 [sym_kString]; ACTIONS 11432 [sym_kTry]; ACTIONS 11092 [sym_kVar];
   ACTIONS 11434 [sym_kWhile]; ACTIONS 11436 [sym_kWith]].

(** State 1451. *)
Definition ts_parse_table_1451 : parse_row :=
  [STATE 6463 [sym_if]; STATE 6476 [sym_ifElse; sym_while; sym_repeat; sym_for; sym_foreach;
   sym_try; sym_case; sym_block; sym_asm; sym_with; sym_raise; sym_statement; sym_goto;
   sym__statement]; STATE 14997 [sym_assignment]; STATE 11829 [sym_varAssignDef];
   STATE 14997 [sym_varDef; sym_constDef]; STATE 6374 [sym_label]; STATE 8298 [sym__expr;
   sym_exprConditional]; STATE 7765 [sym__ref; sym_lambda; sym_inherited; sym_exprDot;
   sym_exprDeref; sym_exprAs; sym_exprTpl; sym_exprSubscript; sym_exprCall];
   STATE 8298 [sym_exprBinary; sym_exprUnary]; STATE 7765 [sym_exprParens; sym_exprBrackets;
   sym__literal; sym_literalString]; STATE 6994 [sym__literalString; sym_literalChar];
   STATE 7765 [sym_literalNumber]; STATE 7888 [sym__literalInt; sym__literalFloat];
   STATE 6374 [aux_sym_labeledStatement_repeat1]; STATE 6994 [aux_sym_literalString_repeat1];
   ACTIONS 10748 [anon_sym_SEMI]; ACTIONS 11060 [anon_sym_LBRACK]; ACTIONS 47 [anon_sym_LPAREN];
   ACTIONS 49 [aux_sym__literalString_token1]; ACTIONS 51 [anon_sym_POUND];
   ACTIONS 53 [aux_sym__literalInt_token1]; ACTIONS 55 [aux_sym__literalInt_token2;
   aux_sym__literalInt_token3]; ACTIONS 53 [aux_sym__literalFloat_token1]; ACTIONS 61 [sym_kAdd;
   sym_kSub]; ACTIONS 63 [sym_kAt]; ACTIONS 65 [sym_kTrue; sym_kFalse];
   ACTIONS 11322 [sym_labelNumber]; ACTIONS 3 [sym__space]; ACTIONS 5 [sym_ppDirective];
   ACTIONS 3 [sym_comment]; ACTIONS 65 [sym_ppFragmentExpr];
   ACTIONS 49 [sym__literalStringMultiline]; ACTIONS 11324 [sym_identifier];
   ACTIONS 73 [sym_kSpecialize]; ACTIONS 11326 [sym_kAsm]; ACTIONS 11328 [sym_kBegin];
   ACTIONS 11330 [sym_kCase]; ACTIONS 11076 [sym_kConst]; ACTIONS 11332 [sym_kFor];
   ACTIONS 11080 [sym_kFunction]; ACTIONS 11334 [sym_kGoto]; ACTIONS 11336 [sym_kIf];
   ACTIONS 105 [sym_kInherited]; ACTIONS 65 [sym_kNil]; ACTIONS 63 [sym_kNot];
   ACTIONS 11080 [sym_kProcedure]; ACTIONS 11338 [sym_kRaise]; ACTIONS 11340 [sym_kRepeat];
   ACTIONS 117 [sym_kString]; ACTIONS 11342 [sym_kTry]; ACTIONS 11092 [sym_kVar];
   ACTIONS 11344 [sym_kWhile]; ACTIONS 11346 [sym_kWith]].

(** State 1452. *)
Definition ts_parse_table_1452 : parse_row :=
  [STATE 14637 [sym_if]; STATE 14141 [sym_ifElse; sym_while; sym_repeat; sym_for; sym_foreach;
   sym_try; sym_case; sym_block; sym_asm; sym_with; sym_raise; sym_statement; sym_goto;
   sym_labeledStatement; sym__statement]; STATE 15512 [sym_assignment];
   STATE 11829 [sym_varAssignDef]; STATE 15512 [sym_varDef; sym_constDef];
   STATE 1444 [sym_label]; STATE 8444 [sym__expr; sym_exprConditional]; STATE 7765 [sym__ref;
   sym_lambda; sym_inherited; sym_exprDot; sym_exprDeref; sym_exprAs; sym_exprTpl;
   sym_exprSubscript; sym_exprCall]; STATE 8444 [sym_exprBinary; sym_exprUnary];
   STATE 7765 [sym_exprParens; sym_exprBrackets; sym__literal; sym_literalString];
   STATE 6994 [sym__literalString; sym_literalChar]; STATE 7765 [sym_literalNumber];
   STATE 7888 [sym__literalInt; sym__literalFloat]; STATE 6994 [aux_sym_literalString_repeat1];
   ACTIONS 11549 [anon_sym_SEMI]; ACTIONS 11060 [anon_sym_LBRACK]; ACTIONS 47 [anon_sym_LPAREN];
   ACTIONS 49 [aux_sym__literalString_token1]; ACTIONS 51 [anon_sym_POUND];
   ACTIONS 53 [aux_sym__literalInt_token1]; ACTIONS 55 [aux_sym__literalInt_token2;
   aux_sym__literalInt_token3]; ACTIONS 53 [aux_sym__literalFloat_token1]; ACTIONS 61 [sym_kAdd;
   sym_kSub]; ACTIONS 63 [sym_kAt]; ACTIONS 65 [sym_kTrue; sym_kFalse];
   ACTIONS 11322 [sym_labelNumber]; ACTIONS 3 [sym__space]; ACTIONS 5 [sym_ppDirective];
   ACTIONS 3 [sym_comment]; ACTIONS 65 [sym_ppFragmentExpr];
   ACTIONS 49 [sym__literalStringMultiline]; ACTIONS 11324 [sym_identifier];
   ACTIONS 73 [sym_kSpecialize]; ACTIONS 11394 [sym_kAsm]; ACTIONS 11396 [sym_kBegin];
   ACTIONS 11398 [sym_kCase]; ACTIONS 11076 [sym_kConst]; ACTIONS 11400 [sym_kFor];
   ACTIONS 11080 [sym_kFunction]; ACTIONS 11402 [sym_kGoto]; ACTIONS 11404 [sym_kIf];
   ACTIONS 105 [sym_kInherited]; ACTIONS 65 [sym_kNil]; ACTIONS 63 [sym_kNot];
   ACTIONS 11080 [sym_kProcedure]; ACTIONS 11406 [sym_kRaise]; ACTIONS 11408 [sym_kRepeat];
   ACTIONS 117 [sym_kString]; ACTIONS 11410 [sym_kTry]; ACTIONS 11092 [sym_kVar];
   ACTIONS 11412 [sym_kWhile]; ACTIONS 11414 [sym_kWith]].

(** State 1453. *)
Definition ts_parse_table_1453 : parse_row :=
  [STATE 1310 [sym_if]; STATE 1374 [sym_ifElse; sym_while; sym_repeat; sym_for; sym_foreach;
   sym_try; sym_case; sym_block; sym_asm; sym_with; sym_raise; sym_statement; sym_goto;
   sym_labeledStatement; sym__statement]; STATE 15141 [sym_assignment];
   STATE 11829 [sym_varAssignDef]; STATE 15141 [sym_varDef; sym_constDef];
   STATE 1411 [sym_label]; STATE 8220 [sym__expr; sym_exprConditional]; STATE 7765 [sym__ref;
   sym_lambda; sym_inherited; sym_exprDot; sym_exprDeref; sym_exprAs; sym_exprTpl;
   sym_exprSubscript; sym_exprCall]; STATE 8220 [sym_exprBinary; sym_exprUnary];
   STATE 7765 [sym_exprParens; sym_exprBrackets; sym__literal; sym_literalString];
   STATE 6994 [sym__literalString; sym_literalChar]; STATE 7765 [sym_literalNumber];
   STATE 7888 [sym__literalInt; sym__literalFloat]; STATE 6994 [aux_sym_literalString_repeat1];
   ACTIONS 10546 [anon_sym_SEMI]; ACTIONS 11060 [anon_sym_LBRACK]; ACTIONS 47 [anon_sym_LPAREN];
   ACTIONS 49 [aux_sym__literalString_token1]; ACTIONS 51 [anon_sym_POUND];
   ACTIONS 53 [aux_sym__literalInt_token1]; ACTIONS 55 [aux_sym__literalInt_token2;
   aux_sym__literalInt_token3]; ACTIONS 53 [aux_sym__literalFloat_token1]; ACTIONS 61 [sym_kAdd;
   sym_kSub]; ACTIONS 63 [sym_kAt]; ACTIONS 65 [sym_kTrue; sym_kFalse];
   ACTIONS 11322 [sym_labelNumber]; ACTIONS 3 [sym__space]; ACTIONS 5 [sym_ppDirective];
   ACTIONS 3 [sym_comment]; ACTIONS 65 [sym_ppFragmentExpr];
   ACTIONS 49 [sym__literalStringMultiline]; ACTIONS 11324 [sym_identifier];
   ACTIONS 73 [sym_kSpecialize]; ACTIONS 83 [sym_kAsm]; ACTIONS 85 [sym_kBegin];
   ACTIONS 87 [sym_kCase]; ACTIONS 11076 [sym_kConst]; ACTIONS 97 [sym_kFor];
   ACTIONS 11080 [sym_kFunction]; ACTIONS 101 [sym_kGoto]; ACTIONS 103 [sym_kIf];
   ACTIONS 105 [sym_kInherited]; ACTIONS 65 [sym_kNil]; ACTIONS 63 [sym_kNot];
   ACTIONS 11080 [sym_kProcedure]; ACTIONS 111 [sym_kRaise]; ACTIONS 113 [sym_kRepeat];
   ACTIONS 117 [sym_kString]; ACTIONS 121 [sym_kTry]; ACTIONS 11092 [sym_kVar];
   ACTIONS 129 [sym_kWhile]; ACTIONS 131 [sym_kWith]].

(** State 1454. *)
Definition ts_parse_table_1454 : parse_row :=
  [STATE 5914 [sym_if]; STATE 5906 [sym_ifElse; sym_while; sym_repeat; sym_for; sym_foreach;
   sym_try; sym_case; sym_block; sym_asm; sym_with; sym_raise; sym_statement; sym_goto;
   sym__statement]; STATE 14947 [sym_assignment]; STATE 11829 [sym_varAssignDef];
   STATE 14947 [sym_varDef; sym_constDef]; STATE 6374 [sym_label]; STATE 8450 [sym__expr;
   sym_exprConditional]; STATE 7765 [sym__ref; sym_lambda; sym_inherited; sym_exprDot;
   sym_exprDeref; sym_exprAs; sym_exprTpl; sym_exprSubscript; sym_exprCall];
   STATE 8450 [sym_exprBinary; sym_exprUnary]; STATE 7765 [sym_exprParens; sym_exprBrackets;
   sym__literal; sym_literalString]; STATE 6994 [sym__literalString; sym_literalChar];
   STATE 7765 [sym_literalNumber]; STATE 7888 [sym__literalInt; sym__literalFloat];
   STATE 6374 [aux_sym_labeledStatement_repeat1]; STATE 6994 [aux_sym_literalString_repeat1];
   ACTIONS 10824 [anon_sym_SEMI]; ACTIONS 11060 [anon_sym_LBRACK]; ACTIONS 47 [anon_sym_LPAREN];
   ACTIONS 49 [aux_sym__literalString_token1]; ACTIONS 51 [anon_sym_POUND];
   ACTIONS 53 [aux_sym__literalInt_token1]; ACTIONS 55 [aux_sym__literalInt_token2;
   aux_sym__literalInt_token3]; ACTIONS 53 [aux_sym__literalFloat_token1]; ACTIONS 61 [sym_kAdd;
   sym_kSub]; ACTIONS 63 [sym_kAt]; ACTIONS 65 [sym_kTrue; sym_kFalse];
   ACTIONS 11322 [sym_labelNumber]; ACTIONS 3 [sym__space]; ACTIONS 5 [sym_ppDirective];
   ACTIONS 3 [sym_comment]; ACTIONS 65 [sym_ppFragmentExpr];
   ACTIONS 49 [sym__literalStringMultiline]; ACTIONS 11324 [sym_identifier];
   ACTIONS 73 [sym_kSpecialize]; ACTIONS 11070 [sym_kAsm]; ACTIONS 11072 [sym_kBegin];
   ACTIONS 11074 [sym_kCase]; ACTIONS 11076 [sym_kConst]; ACTIONS 11078 [sym_kFor];
   ACTIONS 11080 [sym_kFunction]; ACTIONS 11082 [sym_kGoto]; ACTIONS 11084 [sym_kIf];
   ACTIONS 105 [sym_kInherited]; ACTIONS 65 [sym_kNil]; ACTIONS 63 [sym_kNot];
   ACTIONS 11080 [sym_kProcedure]; ACTIONS 11086 [sym_kRaise]; ACTIONS 11088 [sym_kRepeat];
   ACTIONS 117 [sym_kString]; ACTIONS 11090 [sym_kTry]; ACTIONS 11092 [sym_kVar];
   ACTIONS 11094 [sym_kWhile]; ACTIONS 11096 [sym_kWith]].

(** State 1455. *)
Definition ts_parse_table_1455 : parse_row :=
  [STATE 1310 [sym_if]; STATE 1342 [sym_ifElse; sym_while; sym_repeat; sym_for; sym_foreach;
   sym_try; sym_case; sym_block; sym_asm; sym_with; sym_raise; sym_statement; sym_goto;
   sym_labeledStatement; sym__statement]; STATE 15141 [sym_assignment];
   STATE 11829 [sym_varAssignDef]; STATE 15141 [sym_varDef; sym_constDef];
   STATE 1411 [sym_label]; STATE 8220 [sym__expr; sym_exprConditional]; STATE 7765 [sym__ref;
   sym_lambda; sym_inherited; sym_exprDot; sym_exprDeref; sym_exprAs; sym_exprTpl;
   sym_exprSubscript; sym_exprCall]; STATE 8220 [sym_exprBinary; sym_exprUnary];
   STATE 7765 [sym_exprParens; sym_exprBrackets; sym__literal; sym_literalString];
   STATE 6994 [sym__literalString; sym_literalChar]; STATE 7765 [sym_literalNumber];
   STATE 7888 [sym__literalInt; sym__literalFloat]; STATE 6994 [aux_sym_literalString_repeat1];
   ACTIONS 10556 [anon_sym_SEMI]; ACTIONS 11060 [anon_sym_LBRACK]; ACTIONS 47 [anon_sym_LPAREN];
   ACTIONS 49 [aux_sym__literalString_token1]; ACTIONS 51 [anon_sym_POUND];
   ACTIONS 53 [aux_sym__literalInt_token1]; ACTIONS 55 [aux_sym__literalInt_token2;
   aux_sym__literalInt_token3]; ACTIONS 53 [aux_sym__literalFloat_token1]; ACTIONS 61 [sym_kAdd;
   sym_kSub]; ACTIONS 63 [sym_kAt]; ACTIONS 65 [sym_kTrue; sym_kFalse];
   ACTIONS 11322 [sym_labelNumber]; ACTIONS 3 [sym__space]; ACTIONS 5 [sym_ppDirective];
   ACTIONS 3 [sym_comment]; ACTIONS 65 [sym_ppFragmentExpr];
   ACTIONS 49 [sym__literalStringMultiline]; ACTIONS 11324 [sym_identifier];
   ACTIONS 73 [sym_kSpecialize]; ACTIONS 83 [sym_kAsm]; ACTIONS 85 [sym_kBegin];
   ACTIONS 87 [sym_kCase]; ACTIONS 11076 [sym_kConst]; ACTIONS 97 [sym_kFor];
   ACTIONS 11080 [sym_kFunction]; ACTIONS 101 [sym_kGoto]; ACTIONS 103 [sym_kIf];
   ACTIONS 105 [sym_kInherited]; ACTIONS 65 [sym_kNil]; ACTIONS 63 [sym_kNot];
   ACTIONS 11080 [sym_kProcedure]; ACTIONS 111 [sym_kRaise]; ACTIONS 113 [sym_kRepeat];
   ACTIONS 117 [sym_kString]; ACTIONS 121 [sym_kTry]; ACTIONS 11092 [sym_kVar];
   ACTIONS 129 [sym_kWhile]; ACTIONS 131 [sym_kWith]].

(** State 1456. *)
Definition ts_parse_table_1456 : parse_row :=
  [STATE 5914 [sym_if]; STATE 5936 [sym_ifElse; sym_while; sym_repeat; sym_for; sym_foreach;
   sym_try; sym_case; sym_block; sym_asm; sym_with; sym_raise; sym_statement; sym_goto;
   sym_labeledStatement; sym__statement]; STATE 14947 [sym_assignment];
   STATE 11829 [sym_varAssignDef]; STATE 14947 [sym_varDef; sym_constDef];
   STATE 1466 [sym_label]; STATE 8450 [sym__expr; sym_exprConditional]; STATE 7765 [sym__ref;
   sym_lambda; sym_inherited; sym_exprDot; sym_exprDeref; sym_exprAs; sym_exprTpl;
   sym_exprSubscript; sym_exprCall]; STATE 8450 [sym_exprBinary; sym_exprUnary];
   STATE 7765 [sym_exprParens; sym_exprBrackets; sym__literal; sym_literalString];
   STATE 6994 [sym__literalString; sym_literalChar]; STATE 7765 [sym_literalNumber];
   STATE 7888 [sym__literalInt; sym__literalFloat]; STATE 6994 [aux_sym_literalString_repeat1];
   ACTIONS 10642 [anon_sym_SEMI]; ACTIONS 11060 [anon_sym_LBRACK]; ACTIONS 47 [anon_sym_LPAREN];
   ACTIONS 49 [aux_sym__literalString_token1]; ACTIONS 51 [anon_sym_POUND];
   ACTIONS 53 [aux_sym__literalInt_token1]; ACTIONS 55 [aux_sym__literalInt_token2;
   aux_sym__literalInt_token3]; ACTIONS 53 [aux_sym__literalFloat_token1]; ACTIONS 61 [sym_kAdd;
   sym_kSub]; ACTIONS 63 [sym_kAt]; ACTIONS 65 [sym_kTrue; sym_kFalse];
   ACTIONS 11322 [sym_labelNumber]; ACTIONS 3 [sym__space]; ACTIONS 5 [sym_ppDirective];
   ACTIONS 3 [sym_comment]; ACTIONS 65 [sym_ppFragmentExpr];
   ACTIONS 49 [sym__literalStringMultiline]; ACTIONS 11324 [sym_identifier];
   ACTIONS 73 [sym_kSpecialize]; ACTIONS 11070 [sym_kAsm]; ACTIONS 11072 [sym_kBegin];
   ACTIONS 11074 [sym_kCase]; ACTIONS 11076 [sym_kConst]; ACTIONS 11078 [sym_kFor];
   ACTIONS 11080 [sym_kFunction]; ACTIONS 11082 [sym_kGoto]; ACTIONS 11084 [sym_kIf];
   ACTIONS 105 [sym_kInherited]; ACTIONS 65 [sym_kNil]; ACTIONS 63 [sym_kNot];
   ACTIONS 11080 [sym_kProcedure]; ACTIONS 11086 [sym_kRaise]; ACTIONS 11088 [sym_kRepeat];
   ACTIONS 117 [sym_kString]; ACTIONS 11090 [sym_kTry]; ACTIONS 11092 [sym_kVar];
   ACTIONS 11094 [sym_kWhile]; ACTIONS 11096 [sym_kWith]].

(** State 1457. *)
Definition ts_parse_table_1457 : parse_row :=
  [STATE 5914 [sym_if]; STATE 5946 [sym_ifElse; sym_while; sym_repeat; sym_for; sym_foreach;
   sym_try; sym_case; sym_block; sym_asm; sym_with; sym_raise; sym_statement; sym_goto;
   sym_labeledStatement; sym__statement]; STATE 14947 [sym_assignment];
   STATE 11829 [sym_varAssignDef]; STATE 14947 [sym_varDef; sym_constDef];
   STATE 1466 [sym_label]; STATE 8450 [sym__expr; sym_exprConditional]; STATE 7765 [sym__ref;
   sym_lambda; sym_inherited; sym_exprDot; sym_exprDeref; sym_exprAs; sym_exprTpl;
   sym_exprSubscript; sym_exprCall]; STATE 8450 [sym_exprBinary; sym_exprUnary];
   STATE 7765 [sym_exprParens; sym_exprBrackets; sym__literal; sym_literalString];
   STATE 6994 [sym__literalString; sym_literalChar]; STATE 7765 [sym_literalNumber];
   STATE 7888 [sym__literalInt; sym__literalFloat]; STATE 6994 [aux_sym_literalString_repeat1];
   ACTIONS 10646 [anon_sym_SEMI]; ACTIONS 11060 [anon_sym_LBRACK]; ACTIONS 47 [anon_sym_LPAREN];
   ACTIONS 49 [aux_sym__literalString_token1]; ACTIONS 51 [anon_sym_POUND];
   ACTIONS 53 [aux_sym__literalInt_token1]; ACTIONS 55 [aux_sym__literalInt_token2;
   aux_sym__literalInt_token3]; ACTIONS 53 [aux_sym__literalFloat_token1]; ACTIONS 61 [sym_kAdd;
   sym_kSub]; ACTIONS 63 [sym_kAt]; ACTIONS 65 [sym_kTrue; sym_kFalse];
   ACTIONS 11322 [sym_labelNumber]; ACTIONS 3 [sym__space]; ACTIONS 5 [sym_ppDirective];
   ACTIONS 3 [sym_comment]; ACTIONS 65 [sym_ppFragmentExpr];
   ACTIONS 49 [sym__literalStringMultiline]; ACTIONS 11324 [sym_identifier];
   ACTIONS 73 [sym_kSpecialize]; ACTIONS 11070 [sym_kAsm]; ACTIONS 11072 [sym_kBegin];
   ACTIONS 11074 [sym_kCase]; ACTIONS 11076 [sym_kConst]; ACTIONS 11078 [sym_kFor];
   ACTIONS 11080 [sym_kFunction]; ACTIONS 11082 [sym_kGoto]; ACTIONS 11084 [sym_kIf];
   ACTIONS 105 [sym_kInherited]; ACTIONS 65 [sym_kNil]; ACTIONS 63 [sym_kNot];
   ACTIONS 11080 [sym_kProcedure]; ACTIONS 11086 [sym_kRaise]; ACTIONS 11088 [sym_kRepeat];
   ACTIONS 117 [sym_kString]; ACTIONS 11090 [sym_kTry]; ACTIONS 11092 [sym_kVar];
   ACTIONS 11094 [sym_kWhile]; ACTIONS 11096 [sym_kWith]].

(** State 1458. *)
Definition ts_parse_table_1458 : parse_row :=
  [STATE 14637 [sym_if]; STATE 14135 [sym_ifElse; sym_while; sym_repeat; sym_for; sym_foreach;
   sym_try; sym_case; sym_block; sym_asm; sym_with; sym_raise; sym_statement; sym_goto;
   sym_labeledStatement; sym__statement]; STATE 15512 [sym_assignment];
   STATE 11829 [sym_varAssignDef]; STATE 15512 [sym_varDef; sym_constDef];
   STATE 1444 [sym_label]; STATE 8444 [sym__expr; sym_exprConditional]; STATE 7765 [sym__ref;
   sym_lambda; sym_inherited; sym_exprDot; sym_exprDeref; sym_exprAs; sym_exprTpl;
   sym_exprSubscript; sym_exprCall]; STATE 8444 [sym_exprBinary; sym_exprUnary];
   STATE 7765 [sym_exprParens; sym_exprBrackets; sym__literal; sym_literalString];
   STATE 6994 [sym__literalString; sym_literalChar]; STATE 7765 [sym_literalNumber];
   STATE 7888 [sym__literalInt; sym__literalFloat]; STATE 6994 [aux_sym_literalString_repeat1];
   ACTIONS 10226 [anon_sym_SEMI]; ACTIONS 11060 [anon_sym_LBRACK]; ACTIONS 47 [anon_sym_LPAREN];
   ACTIONS 49 [aux_sym__literalString_token1]; ACTIONS 51 [anon_sym_POUND];
   ACTIONS 53 [aux_sym__literalInt_token1]; ACTIONS 55 [aux_sym__literalInt_token2;
   aux_sym__literalInt_token3]; ACTIONS 53 [aux_sym__literalFloat_token1]; ACTIONS 61 [sym_kAdd;
   sym_kSub]; ACTIONS 63 [sym_kAt]; ACTIONS 65 [sym_kTrue; sym_kFalse];
   ACTIONS 11322 [sym_labelNumber]; ACTIONS 3 [sym__space]; ACTIONS 5 [sym_ppDirective];
   ACTIONS 3 [sym_comment]; ACTIONS 65 [sym_ppFragmentExpr];
   ACTIONS 49 [sym__literalStringMultiline]; ACTIONS 11324 [sym_identifier];
   ACTIONS 73 [sym_kSpecialize]; ACTIONS 11394 [sym_kAsm]; ACTIONS 11396 [sym_kBegin];
   ACTIONS 11398 [sym_kCase]; ACTIONS 11076 [sym_kConst]; ACTIONS 11400 [sym_kFor];
   ACTIONS 11080 [sym_kFunction]; ACTIONS 11402 [sym_kGoto]; ACTIONS 11404 [sym_kIf];
   ACTIONS 105 [sym_kInherited]; ACTIONS 65 [sym_kNil]; ACTIONS 63 [sym_kNot];
   ACTIONS 11080 [sym_kProcedure]; ACTIONS 11406 [sym_kRaise]; ACTIONS 11408 [sym_kRepeat];
   ACTIONS 117 [sym_kString]; ACTIONS 11410 [sym_kTry]; ACTIONS 11092 [sym_kVar];
   ACTIONS 11412 [sym_kWhile]; ACTIONS 11414 [sym_kWith]].

(** State 1459. *)
Definition ts_parse_table_1459 : parse_row :=
  [STATE 15084 [sym_if]; STATE 15522 [sym_ifElse; sym_while; sym_repeat; sym_for; sym_foreach;
   sym_try; sym_case; sym_block; sym_asm; sym_with; sym_raise; sym_statement; sym_goto;
   sym__statement]; STATE 14151 [sym_assignment]; STATE 11829 [sym_varAssignDef];
   STATE 14151 [sym_varDef; sym_constDef]; STATE 1472 [sym_label]; STATE 8337 [sym__expr;
   sym_exprConditional]; STATE 7765 [sym__ref; sym_lambda; sym_inherited; sym_exprDot;
   sym_exprDeref; sym_exprAs; sym_exprTpl; sym_exprSubscript; sym_exprCall];
   STATE 8337 [sym_exprBinary; sym_exprUnary]; STATE 7765 [sym_exprParens; sym_exprBrackets;
   sym__literal; sym_literalString]; STATE 6994 [sym__literalString; sym_literalChar];
   STATE 7765 [sym_literalNumber]; STATE 7888 [sym__literalInt; sym__literalFloat];
   STATE 1472 [aux_sym_labeledStatement_repeat1]; STATE 6994 [aux_sym_literalString_repeat1];
   ACTIONS 11551 [anon_sym_SEMI]; ACTIONS 11554 [anon_sym_LBRACK];
   ACTIONS 11557 [anon_sym_LPAREN]; ACTIONS 11560 [aux_sym__literalString_token1];
   ACTIONS 11563 [anon_sym_POUND]; ACTIONS 11566 [aux_sym__literalInt_token1];
   ACTIONS 11569 [aux_sym__literalInt_token2; aux_sym__literalInt_token3];
   ACTIONS 11566 [aux_sym__literalFloat_token1]; ACTIONS 11572 [sym_kAdd; sym_kSub];
   ACTIONS 11575 [sym_kAt]; ACTIONS 11578 [sym_kTrue; sym_kFalse];
   ACTIONS 11581 [sym_labelNumber]; ACTIONS 3 [sym__space]; ACTIONS 5 [sym_ppDirective];
   ACTIONS 3 [sym_comment]; ACTIONS 11578 [sym_ppFragmentExpr];
   ACTIONS 11560 [sym__literalStringMultiline]; ACTIONS 11584 [sym_identifier];
   ACTIONS 11587 [sym_kSpecialize]; ACTIONS 11590 [sym_kAsm]; ACTIONS 11593 [sym_kBegin];
   ACTIONS 11596 [sym_kCase]; ACTIONS 11599 [sym_kConst]; ACTIONS 11602 [sym_kFor];
   ACTIONS 11605 [sym_kFunction]; ACTIONS 11608 [sym_kGoto]; ACTIONS 11611 [sym_kIf];
   ACTIONS 11614 [sym_kInherited]; ACTIONS 11578 [sym_kNil]; ACTIONS 11575 [sym_kNot];
   ACTIONS 11605 [sym_kProcedure]; ACTIONS 11617 [sym_kRaise]; ACTIONS 11620 [sym_kRepeat];
   ACTIONS 11623 [sym_kString]; ACTIONS 11626 [sym_kTry]; ACTIONS 11629 [sym_kVar];
   ACTIONS 11632 [sym_kWhile]; ACTIONS 11635 [sym_kWith]].

(** State 1460. *)
Definition ts_parse_table_1460 : parse_row :=
  [STATE 6747 [sym_if]; STATE 6652 [sym_ifElse; sym_while; sym_repeat; sym_for; sym_foreach;
   sym_try; sym_case; sym_block; sym_asm; sym_with; sym_raise; sym_statement; sym_goto;
   sym_labeledStatement; sym__statement]; STATE 15181 [sym_assignment];
   STATE 11829 [sym_varAssignDef]; STATE 15181 [sym_varDef; sym_constDef];
   STATE 1405 [sym_label]; STATE 8409 [sym__expr; sym_exprConditional]; STATE 7765 [sym__ref;
   sym_lambda; sym_inherited; sym_exprDot; sym_exprDeref; sym_exprAs; sym_exprTpl;
   sym_exprSubscript; sym_exprCall]; STATE 8409 [sym_exprBinary; sym_exprUnary];
   STATE 7765 [sym_exprParens; sym_exprBrackets; sym__literal; sym_literalString];
   STATE 6994 [sym__literalString; sym_literalChar]; STATE 7765 [sym_literalNumber];
   STATE 7888 [sym__literalInt; sym__literalFloat]; STATE 6994 [aux_sym_literalString_repeat1];
   ACTIONS 10682 [anon_sym_SEMI]; ACTIONS 11060 [anon_sym_LBRACK]; ACTIONS 47 [anon_sym_LPAREN];
   ACTIONS 49 [aux_sym__literalString_token1]; ACTIONS 51 [anon_sym_POUND];
   ACTIONS 53 [aux_sym__literalInt_token1]; ACTIONS 55 [aux_sym__literalInt_token2;
   aux_sym__literalInt_token3]; ACTIONS 53 [aux_sym__literalFloat_token1]; ACTIONS 61 [sym_kAdd;
   sym_kSub]; ACTIONS 63 [sym_kAt]; ACTIONS 65 [sym_kTrue; sym_kFalse];
   ACTIONS 11322 [sym_labelNumber]; ACTIONS 3 [sym__space]; ACTIONS 5 [sym_ppDirective];
   ACTIONS 3 [sym_comment]; ACTIONS 65 [sym_ppFragmentExpr];
   ACTIONS 49 [sym__literalStringMultiline]; ACTIONS 11324 [sym_identifier];
   ACTIONS 73 [sym_kSpecialize]; ACTIONS 11372 [sym_kAsm]; ACTIONS 11374 [sym_kBegin];
   ACTIONS 11376 [sym_kCase]; ACTIONS 11076 [sym_kConst]; ACTIONS 11378 [sym_kFor];
   ACTIONS 11080 [sym_kFunction]; ACTIONS 11380 [sym_kGoto]; ACTIONS 11382 [sym_kIf];
   ACTIONS 105 [sym_kInherited]; ACTIONS 65 [sym_kNil]; ACTIONS 63 [sym_kNot];
   ACTIONS 11080 [sym_kProcedure]; ACTIONS 11384 [sym_kRaise]; ACTIONS 11386 [sym_kRepeat];
   ACTIONS 117 [sym_kString]; ACTIONS 11388 [sym_kTry]; ACTIONS 11092 [sym_kVar];
   ACTIONS 11390 [sym_kWhile]; ACTIONS 11392 [sym_kWith]].

(** State 1461. *)
Definition ts_parse_table_1461 : parse_row :=
  [STATE 6747 [sym_if]; STATE 6660 [sym_ifElse; sym_while; sym_repeat; sym_for; sym_foreach;
   sym_try; sym_case; sym_block; sym_asm; sym_with; sym_raise; sym_statement; sym_goto;
   sym_labeledStatement; sym__statement]; STATE 15181 [sym_assignment];
   STATE 11829 [sym_varAssignDef]; STATE 15181 [sym_varDef; sym_constDef];
   STATE 1405 [sym_label]; STATE 8409 [sym__expr; sym_exprConditional]; STATE 7765 [sym__ref;
   sym_lambda; sym_inherited; sym_exprDot; sym_exprDeref; sym_exprAs; sym_exprTpl;
   sym_exprSubscript; sym_exprCall]; STATE 8409 [sym_exprBinary; sym_exprUnary];
   STATE 7765 [sym_exprParens; sym_exprBrackets; sym__literal; sym_literalString];
   STATE 6994 [sym__literalString; sym_literalChar]; STATE 7765 [sym_literalNumber];
   STATE 7888 [sym__literalInt; sym__literalFloat]; STATE 6994 [aux_sym_literalString_repeat1];
   ACTIONS 10686 [anon_sym_SEMI]; ACTIONS 11060 [anon_sym_LBRACK]; ACTIONS 47 [anon_sym_LPAREN];
   ACTIONS 49 [aux_sym__literalString_token1]; ACTIONS 51 [anon_sym_POUND];
   ACTIONS 53 [aux_sym__literalInt_token1]; ACTIONS 55 [aux_sym__literalInt_token2;
   aux_sym__literalInt_token3]; ACTIONS 53 [aux_sym__literalFloat_token1]; ACTIONS 61 [sym_kAdd;
   sym_kSub]; ACTIONS 63 [sym_kAt]; ACTIONS 65 [sym_kTrue; sym_kFalse];
   ACTIONS 11322 [sym_labelNumber]; ACTIONS 3 [sym__space]; ACTIONS 5 [sym_ppDirective];
   ACTIONS 3 [sym_comment]; ACTIONS 65 [sym_ppFragmentExpr];
   ACTIONS 49 [sym__literalStringMultiline]; ACTIONS 11324 [sym_identifier];
   ACTIONS 73 [sym_kSpecialize]; ACTIONS 11372 [sym_kAsm]; ACTIONS 11374 [sym_kBegin];
   ACTIONS 11376 [sym_kCase]; ACTIONS 11076 [sym_kConst]; ACTIONS 11378 [sym_kFor];
   ACTIONS 11080 [sym_kFunction]; ACTIONS 11380 [sym_kGoto]; ACTIONS 11382 [sym_kIf];
   ACTIONS 105 [sym_kInherited]; ACTIONS 65 [sym_kNil]; ACTIONS 63 [sym_kNot];
   ACTIONS 11080 [sym_kProcedure]; ACTIONS 11384 [sym_kRaise]; ACTIONS 11386 [sym_kRepeat];
   ACTIONS 117 [sym_kString]; ACTIONS 11388 [sym_kTry]; ACTIONS 11092 [sym_kVar];
   ACTIONS 11390 [sym_kWhile]; ACTIONS 11392 [sym_kWith]].

(** State 1462. *)
Definition ts_parse_table_1462 : parse_row :=
  [STATE 14637 [sym_if]; STATE 14136 [sym_ifElse; sym_while; sym_repeat; sym_for; sym_foreach;
   sym_try; sym_case; sym_block; sym_asm; sym_with; sym_raise; sym_statement; sym_goto;
   sym_labeledStatement; sym__statement]; STATE 15512 [sym_assignment];
   STATE 11829 [sym_varAssignDef]; STATE 15512 [sym_varDef; sym_constDef];
   STATE 1444 [sym_label]; STATE 8444 [sym__expr; sym_exprConditional]; STATE 7765 [sym__ref;
   sym_lambda; sym_inherited; sym_exprDot; sym_exprDeref; sym_exprAs; sym_exprTpl;
   sym_exprSubscript; sym_exprCall]; STATE 8444 [sym_exprBinary; sym_exprUnary];
   STATE 7765 [sym_exprParens; sym_exprBrackets; sym__literal; sym_literalString];
   STATE 6994 [sym__literalString; sym_literalChar]; STATE 7765 [sym_literalNumber];
   STATE 7888 [sym__literalInt; sym__literalFloat]; STATE 6994 [aux_sym_literalString_repeat1];
   ACTIONS 10230 [anon_sym_SEMI]; ACTIONS 11060 [anon_sym_LBRACK]; ACTIONS 47 [anon_sym_LPAREN];
   ACTIONS 49 [aux_sym__literalString_token1]; ACTIONS 51 [anon_sym_POUND];
   ACTIONS 53 [aux_sym__literalInt_token1]; ACTIONS 55 [aux_sym__literalInt_token2;
   aux_sym__literalInt_token3]; ACTIONS 53 [aux_sym__literalFloat_token1]; ACTIONS 61 [sym_kAdd;
   sym_kSub]; ACTIONS 63 [sym_kAt]; ACTIONS 65 [sym_kTrue; sym_kFalse];
   ACTIONS 11322 [sym_labelNumber]; ACTIONS 3 [sym__space]; ACTIONS 5 [sym_ppDirective];
   ACTIONS 3 [sym_comment]; ACTIONS 65 [sym_ppFragmentExpr];
   ACTIONS 49 [sym__literalStringMultiline]; ACTIONS 11324 [sym_identifier];
   ACTIONS 73 [sym_kSpecialize]; ACTIONS 11394 [sym_kAsm]; ACTIONS 11396 [sym_kBegin];
   ACTIONS 11398 [sym_kCase]; ACTIONS 11076 [sym_kConst]; ACTIONS 11400 [sym_kFor];
   ACTIONS 11080 [sym_kFunction]; ACTIONS 11402 [sym_kGoto]; ACTIONS 11404 [sym_kIf];
   ACTIONS 105 [sym_kInherited]; ACTIONS 65 [sym_kNil]; ACTIONS 63 [sym_kNot];
   ACTIONS 11080 [sym_kProcedure]; ACTIONS 11406 [sym_kRaise]; ACTIONS 11408 [sym_kRepeat];
   ACTIONS 117 [sym_kString]; ACTIONS 11410 [sym_kTry]; ACTIONS 11092 [sym_kVar];
   ACTIONS 11412 [sym_kWhile]; ACTIONS 11414 [sym_kWith]].

(** State 1463. *)
Definition ts_parse_table_1463 : parse_row :=
  [STATE 6747 [sym_if]; STATE 6680 [sym_ifElse; sym_while; sym_repeat; sym_for; sym_foreach;
   sym_try; sym_case; sym_block; sym_asm; sym_with; sym_raise; sym_statement; sym_goto;
   sym_labeledStatement; sym__statement]; STATE 15181 [sym_assignment];
   STATE 11829 [sym_varAssignDef]; STATE 15181 [sym_varDef; sym_constDef];
   STATE 1405 [sym_label]; STATE 8409 [sym__expr; sym_exprConditional]; STATE 7765 [sym__ref;
   sym_lambda; sym_inherited; sym_exprDot; sym_exprDeref; sym_exprAs; sym_exprTpl;
   sym_exprSubscript; sym_exprCall]; STATE 8409 [sym_exprBinary; sym_exprUnary];
   STATE 7765 [sym_exprParens; sym_exprBrackets; sym__literal; sym_literalString];
   STATE 6994 [sym__literalString; sym_literalChar]; STATE 7765 [sym_literalNumber];
   STATE 7888 [sym__literalInt; sym__literalFloat]; STATE 6994 [aux_sym_literalString_repeat1];
   ACTIONS 10692 [anon_sym_SEMI]; ACTIONS 11060 [anon_sym_LBRACK]; ACTIONS 47 [anon_sym_LPAREN];
   ACTIONS 49 [aux_sym__literalString_token1]; ACTIONS 51 [anon_sym_POUND];
   ACTIONS 53 [aux_sym__literalInt_token1]; ACTIONS 55 [aux_sym__literalInt_token2;
   aux_sym__literalInt_token3]; ACTIONS 53 [aux_sym__literalFloat_token1]; ACTIONS 61 [sym_kAdd;
   sym_kSub]; ACTIONS 63 [sym_kAt]; ACTIONS 65 [sym_kTrue; sym_kFalse];
   ACTIONS 11322 [sym_labelNumber]; ACTIONS 3 [sym__space]; ACTIONS 5 [sym_ppDirective];
   ACTIONS 3 [sym_comment]; ACTIONS 65 [sym_ppFragmentExpr];
   ACTIONS 49 [sym__literalStringMultiline]; ACTIONS 11324 [sym_identifier];
   ACTIONS 73 [sym_kSpecialize]; ACTIONS 11372 [sym_kAsm]; ACTIONS 11374 [sym_kBegin];
   ACTIONS 11376 [sym_kCase]; ACTIONS 11076 [sym_kConst]; ACTIONS 11378 [sym_kFor];
   ACTIONS 11080 [sym_kFunction]; ACTIONS 11380 [sym_kGoto]; ACTIONS 11382 [sym_kIf];
   ACTIONS 105 [sym_kInherited]; ACTIONS 65 [sym_kNil]; ACTIONS 63 [sym_kNot];
   ACTIONS 11080 [sym_kProcedure]; ACTIONS 11384 [sym_kRaise]; ACTIONS 11386 [sym_kRepeat];
   ACTIONS 117 [sym_kString]; ACTIONS 11388 [sym_kTry]; ACTIONS 11092 [sym_kVar];
   ACTIONS 11390 [sym_kWhile]; ACTIONS 11392 [sym_kWith]].

(** State 1464. *)
Definition ts_parse_table_1464 : parse_row :=
  [STATE 15084 [sym_if]; STATE 15522 [sym_ifElse; sym_while; sym_repeat; sym_for; sym_foreach;
   sym_try; sym_case; sym_block; sym_asm; sym_with; sym_raise; sym_statement; sym_goto;
   sym__statement]; STATE 14151 [sym_assignment]; STATE 11829 [sym_varAssignDef];
   STATE 14151 [sym_varDef; sym_constDef]; STATE 1472 [sym_label]; STATE 8337 [sym__expr;
   sym_exprConditional]; STATE 7765 [sym__ref; sym_lambda; sym_inherited; sym_exprDot;
   sym_exprDeref; sym_exprAs; sym_exprTpl; sym_exprSubscript; sym_exprCall];
   STATE 8337 [sym_exprBinary; sym_exprUnary]; STATE 7765 [sym_exprParens; sym_exprBrackets;
   sym__literal; sym_literalString]; STATE 6994 [sym__literalString; sym_literalChar];
   STATE 7765 [sym_literalNumber]; STATE 7888 [sym__literalInt; sym__literalFloat];
   STATE 1472 [aux_sym_labeledStatement_repeat1]; STATE 6994 [aux_sym_literalString_repeat1];
   ACTIONS 10744 [anon_sym_SEMI]; ACTIONS 11060 [anon_sym_LBRACK]; ACTIONS 47 [anon_sym_LPAREN];
   ACTIONS 49 [aux_sym__literalString_token1]; ACTIONS 51 [anon_sym_POUND];
   ACTIONS 53 [aux_sym__literalInt_token1]; ACTIONS 55 [aux_sym__literalInt_token2;
   aux_sym__literalInt_token3]; ACTIONS 53 [aux_sym__literalFloat_token1]; ACTIONS 61 [sym_kAdd;
   sym_kSub]; ACTIONS 63 [sym_kAt]; ACTIONS 65 [sym_kTrue; sym_kFalse];
   ACTIONS 11322 [sym_labelNumber]; ACTIONS 3 [sym__space]; ACTIONS 5 [sym_ppDirective];
   ACTIONS 3 [sym_comment]; ACTIONS 65 [sym_ppFragmentExpr];
   ACTIONS 49 [sym__literalStringMultiline]; ACTIONS 11324 [sym_identifier];
   ACTIONS 73 [sym_kSpecialize]; ACTIONS 11438 [sym_kAsm]; ACTIONS 11440 [sym_kBegin];
   ACTIONS 11442 [sym_kCase]; ACTIONS 11076 [sym_kConst]; ACTIONS 11444 [sym_kFor];
   ACTIONS 11080 [sym_kFunction]; ACTIONS 11446 [sym_kGoto]; ACTIONS 11448 [sym_kIf];
   ACTIONS 105 [sym_kInherited]; ACTIONS 65 [sym_kNil]; ACTIONS 63 [sym_kNot];
   ACTIONS 11080 [sym_kProcedure]; ACTIONS 11450 [sym_kRaise]; ACTIONS 11452 [sym_kRepeat];
   ACTIONS 117 [sym_kString]; ACTIONS 11454 [sym_kTry]; ACTIONS 11092 [sym_kVar];
   ACTIONS 11456 [sym_kWhile]; ACTIONS 11458 [sym_kWith]].

(** State 1465. *)
Definition ts_parse_table_1465 : parse_row :=
  [STATE 6747 [sym_if]; STATE 6743 [sym_ifElse; sym_while; sym_repeat; sym_for; sym_foreach;
   sym_try; sym_case; sym_block; sym_asm; sym_with; sym_raise; sym_statement; sym_goto];
   STATE 6737 [sym_labeledStatement]; STATE 6743 [sym__statement]; STATE 15181 [sym_assignment];
   STATE 11829 [sym_varAssignDef]; STATE 15181 [sym_varDef; sym_constDef];
   STATE 1405 [sym_label]; STATE 8409 [sym__expr; sym_exprConditional]; STATE 7765 [sym__ref;
   sym_lambda; sym_inherited; sym_exprDot; sym_exprDeref; sym_exprAs; sym_exprTpl;
   sym_exprSubscript; sym_exprCall]; STATE 8409 [sym_exprBinary; sym_exprUnary];
   STATE 7765 [sym_exprParens; sym_exprBrackets; sym__literal; sym_literalString];
   STATE 6994 [sym__literalString; sym_literalChar]; STATE 7765 [sym_literalNumber];
   STATE 7888 [sym__literalInt; sym__literalFloat]; STATE 6994 [aux_sym_literalString_repeat1];
   ACTIONS 10694 [anon_sym_SEMI]; ACTIONS 11060 [anon_sym_LBRACK]; ACTIONS 47 [anon_sym_LPAREN];
   ACTIONS 49 [aux_sym__literalString_token1]; ACTIONS 51 [anon_sym_POUND];
   ACTIONS 53 [aux_sym__literalInt_token1]; ACTIONS 55 [aux_sym__literalInt_token2;
   aux_sym__literalInt_token3]; ACTIONS 53 [aux_sym__literalFloat_token1]; ACTIONS 61 [sym_kAdd;
   sym_kSub]; ACTIONS 63 [sym_kAt]; ACTIONS 65 [sym_kTrue; sym_kFalse];
   ACTIONS 11322 [sym_labelNumber]; ACTIONS 3 [sym__space]; ACTIONS 5 [sym_ppDirective];
   ACTIONS 3 [sym_comment]; ACTIONS 65 [sym_ppFragmentExpr];
   ACTIONS 49 [sym__literalStringMultiline]; ACTIONS 11324 [sym_identifier];
   ACTIONS 73 [sym_kSpecialize]; ACTIONS 11372 [sym_kAsm]; ACTIONS 11374 [sym_kBegin];
   ACTIONS 11376 [sym_kCase]; ACTIONS 11076 [sym_kConst]; ACTIONS 11378 [sym_kFor];
   ACTIONS 11080 [sym_kFunction]; ACTIONS 11380 [sym_kGoto]; ACTIONS 11382 [sym_kIf];
   ACTIONS 105 [sym_kInherited]; ACTIONS 65 [sym_kNil]; ACTIONS 63 [sym_kNot];
   ACTIONS 11080 [sym_kProcedure]; ACTIONS 11384 [sym_kRaise]; ACTIONS 11386 [sym_kRepeat];
   ACTIONS 117 [sym_kString]; ACTIONS 11388 [sym_kTry]; ACTIONS 11092 [sym_kVar];
   ACTIONS 11390 [sym_kWhile]; ACTIONS 11392 [sym_kWith]].

(** State 1466. *)
Definition ts_parse_table_1466 : parse_row :=
  [STATE 5914 [sym_if]; STATE 5991 [sym_ifElse; sym_while; sym_repeat; sym_for; sym_foreach;
   sym_try; sym_case; sym_block; sym_asm; sym_with; sym_raise; sym_statement; sym_goto;
   sym__statement]; STATE 14947 [sym_assignment]; STATE 11829 [sym_varAssignDef];
   STATE 14947 [sym_varDef; sym_constDef]; STATE 1454 [sym_label]; STATE 8450 [sym__expr;
   sym_exprConditional]; STATE 7765 [sym__ref; sym_lambda; sym_inherited; sym_exprDot;
   sym_exprDeref; sym_exprAs; sym_exprTpl; sym_exprSubscript; sym_exprCall];
   STATE 8450 [sym_exprBinary; sym_exprUnary]; STATE 7765 [sym_exprParens; sym_exprBrackets;
   sym__literal; sym_literalString]; STATE 6994 [sym__literalString; sym_literalChar];
   STATE 7765 [sym_literalNumber]; STATE 7888 [sym__literalInt; sym__literalFloat];
   STATE 1454 [aux_sym_labeledStatement_repeat1]; STATE 6994 [aux_sym_literalString_repeat1];
   ACTIONS 10822 [anon_sym_SEMI]; ACTIONS 11060 [anon_sym_LBRACK]; ACTIONS 47 [anon_sym_LPAREN];
   ACTIONS 49 [aux_sym__literalString_token1]; ACTIONS 51 [anon_sym_POUND];
   ACTIONS 53 [aux_sym__literalInt_token1]; ACTIONS 55 [aux_sym__literalInt_token2;
   aux_sym__literalInt_token3]; ACTIONS 53 [aux_sym__literalFloat_token1]; ACTIONS 61 [sym_kAdd;
   sym_kSub]; ACTIONS 63 [sym_kAt]; ACTIONS 65 [sym_kTrue; sym_kFalse];
   ACTIONS 11322 [sym_labelNumber]; ACTIONS 3 [sym__space]; ACTIONS 5 [sym_ppDirective];
   ACTIONS 3 [sym_comment]; ACTIONS 65 [sym_ppFragmentExpr];
   ACTIONS 49 [sym__literalStringMultiline]; ACTIONS 11324 [sym_identifier];
   ACTIONS 73 [sym_kSpecialize]; ACTIONS 11070 [sym_kAsm]; ACTIONS 11072 [sym_kBegin];
   ACTIONS 11074 [sym_kCase]; ACTIONS 11076 [sym_kConst]; ACTIONS 11078 [sym_kFor];
   ACTIONS 11080 [sym_kFunction]; ACTIONS 11082 [sym_kGoto]; ACTIONS 11084 [sym_kIf];
   ACTIONS 105 [sym_kInherited]; ACTIONS 65 [sym_kNil]; ACTIONS 63 [sym_kNot];
   ACTIONS 11080 [sym_kProcedure]; ACTIONS 11086 [sym_kRaise]; ACTIONS 11088 [sym_kRepeat];
   ACTIONS 117 [sym_kString]; ACTIONS 11090 [sym_kTry]; ACTIONS 11092 [sym_kVar];
   ACTIONS 11094 [sym_kWhile]; ACTIONS 11096 [sym_kWith]].

(** State 1467. *)
Definition ts_parse_table_1467 : parse_row :=
  [STATE 6747 [sym_if]; STATE 6788 [sym_ifElse; sym_while; sym_repeat; sym_for; sym_foreach;
   sym_try; sym_case; sym_block; sym_asm; sym_with; sym_raise; sym_statement; sym_goto;
   sym_labeledStatement; sym__statement]; STATE 15181 [sym_assignment];
   STATE 11829 [sym_varAssignDef]; STATE 15181 [sym_varDef; sym_constDef];
   STATE 1405 [sym_label]; STATE 8409 [sym__expr; sym_exprConditional]; STATE 7765 [sym__ref;
   sym_lambda; sym_inherited; sym_exprDot; sym_exprDeref; sym_exprAs; sym_exprTpl;
   sym_exprSubscript; sym_exprCall]; STATE 8409 [sym_exprBinary; sym_exprUnary];
   STATE 7765 [sym_exprParens; sym_exprBrackets; sym__literal; sym_literalString];
   STATE 6994 [sym__literalString; sym_literalChar]; STATE 7765 [sym_literalNumber];
   STATE 7888 [sym__literalInt; sym__literalFloat]; STATE 6994 [aux_sym_literalString_repeat1];
   ACTIONS 10700 [anon_sym_SEMI]; ACTIONS 11060 [anon_sym_LBRACK]; ACTIONS 47 [anon_sym_LPAREN];
   ACTIONS 49 [aux_sym__literalString_token1]; ACTIONS 51 [anon_sym_POUND];
   ACTIONS 53 [aux_sym__literalInt_token1]; ACTIONS 55 [aux_sym__literalInt_token2;
   aux_sym__literalInt_token3]; ACTIONS 53 [aux_sym__literalFloat_token1]; ACTIONS 61 [sym_kAdd;
   sym_kSub]; ACTIONS 63 [sym_kAt]; ACTIONS 65 [sym_kTrue; sym_kFalse];
   ACTIONS 11322 [sym_labelNumber]; ACTIONS 3 [sym__space]; ACTIONS 5 [sym_ppDirective];
   ACTIONS 3 [sym_comment]; ACTIONS 65 [sym_ppFragmentExpr];
   ACTIONS 49 [sym__literalStringMultiline]; ACTIONS 11324 [sym_identifier];
   ACTIONS 73 [sym_kSpecialize]; ACTIONS 11372 [sym_kAsm]; ACTIONS 11374 [sym_kBegin];
   ACTIONS 11376 [sym_kCase]; ACTIONS 11076 [sym_kConst]; ACTIONS 11378 [sym_kFor];
   ACTIONS 11080 [sym_kFunction]; ACTIONS 11380 [sym_kGoto]; ACTIONS 11382 [sym_kIf];
   ACTIONS 105 [sym_kInherited]; ACTIONS 65 [sym_kNil]; ACTIONS 63 [sym_kNot];
   ACTIONS 11080 [sym_kProcedure]; ACTIONS 11384 [sym_kRaise]; ACTIONS 11386 [sym_kRepeat];
   ACTIONS 117 [sym_kString]; ACTIONS 11388 [sym_kTry]; ACTIONS 11092 [sym_kVar];
   ACTIONS 11390 [sym_kWhile]; ACTIONS 11392 [sym_kWith]].

(** State 1468. *)
Definition ts_parse_table_1468 : parse_row :=
  [STATE 6747 [sym_if]; STATE 6791 [sym_ifElse; sym_while; sym_repeat; sym_for; sym_foreach;
   sym_try; sym_case; sym_block; sym_asm; sym_with; sym_raise; sym_statement; sym_goto;
   sym_labeledStatement; sym__statement]; STATE 15181 [sym_assignment];
   STATE 11829 [sym_varAssignDef]; STATE 15181 [sym_varDef; sym_constDef];
   STATE 1405 [sym_label]; STATE 8409 [sym__expr; sym_exprConditional]; STATE 7765 [sym__ref;
   sym_lambda; sym_inherited; sym_exprDot; sym_exprDeref; sym_exprAs; sym_exprTpl;
   sym_exprSubscript; sym_exprCall]; STATE 8409 [sym_exprBinary; sym_exprUnary];
   STATE 7765 [sym_exprParens; sym_exprBrackets; sym__literal; sym_literalString];
   STATE 6994 [sym__literalString; sym_literalChar]; STATE 7765 [sym_literalNumber];
   STATE 7888 [sym__literalInt; sym__literalFloat]; STATE 6994 [aux_sym_literalString_repeat1];
   ACTIONS 10702 [anon_sym_SEMI]; ACTIONS 11060 [anon_sym_LBRACK]; ACTIONS 47 [anon_sym_LPAREN];
   ACTIONS 49 [aux_sym__literalString_token1]; ACTIONS 51 [anon_sym_POUND];
   ACTIONS 53 [aux_sym__literalInt_token1]; ACTIONS 55 [aux_sym__literalInt_token2;
   aux_sym__literalInt_token3]; ACTIONS 53 [aux_sym__literalFloat_token1]; ACTIONS 61 [sym_kAdd;
   sym_kSub]; ACTIONS 63 [sym_kAt]; ACTIONS 65 [sym_kTrue; sym_kFalse];
   ACTIONS 11322 [sym_labelNumber]; ACTIONS 3 [sym__space]; ACTIONS 5 [sym_ppDirective];
   ACTIONS 3 [sym_comment]; ACTIONS 65 [sym_ppFragmentExpr];
   ACTIONS 49 [sym__literalStringMultiline]; ACTIONS 11324 [sym_identifier];
   ACTIONS 73 [sym_kSpecialize]; ACTIONS 11372 [sym_kAsm]; ACTIONS 11374 [sym_kBegin];
   ACTIONS 11376 [sym_kCase]; ACTIONS 11076 [sym_kConst]; ACTIONS 11378 [sym_kFor];
   ACTIONS 11080 [sym_kFunction]; ACTIONS 11380 [sym_kGoto]; ACTIONS 11382 [sym_kIf];
   ACTIONS 105 [sym_kInherited]; ACTIONS 65 [sym_kNil]; ACTIONS 63 [sym_kNot];
   ACTIONS 11080 [sym_kProcedure]; ACTIONS 11384 [sym_kRaise]; ACTIONS 11386 [sym_kRepeat];
   ACTIONS 117 [sym_kString]; ACTIONS 11388 [sym_kTry]; ACTIONS 11092 [sym_kVar];
   ACTIONS 11390 [sym_kWhile]; ACTIONS 11392 [sym_kWith]].

(** State 1469. *)
Definition ts_parse_table_1469 : parse_row :=
  [STATE 6747 [sym_if]; STATE 6799 [sym_ifElse; sym_while; sym_repeat; sym_for; sym_foreach;
   sym_try; sym_case; sym_block; sym_asm; sym_with; sym_raise; sym_statement; sym_goto;
   sym_labeledStatement; sym__statement]; STATE 15181 [sym_assignment];
   STATE 11829 [sym_varAssignDef]; STATE 15181 [sym_varDef; sym_constDef];
   STATE 1405 [sym_label]; STATE 8409 [sym__expr; sym_exprConditional]; STATE 7765 [sym__ref;
   sym_lambda; sym_inherited; sym_exprDot; sym_exprDeref; sym_exprAs; sym_exprTpl;
   sym_exprSubscript; sym_exprCall]; STATE 8409 [sym_exprBinary; sym_exprUnary];
   STATE 7765 [sym_exprParens; sym_exprBrackets; sym__literal; sym_literalString];
   STATE 6994 [sym__literalString; sym_literalChar]; STATE 7765 [sym_literalNumber];
   STATE 7888 [sym__literalInt; sym__literalFloat]; STATE 6994 [aux_sym_literalString_repeat1];
   ACTIONS 10042 [anon_sym_SEMI]; ACTIONS 11060 [anon_sym_LBRACK]; ACTIONS 47 [anon_sym_LPAREN];
   ACTIONS 49 [aux_sym__literalString_token1]; ACTIONS 51 [anon_sym_POUND];
   ACTIONS 53 [aux_sym__literalInt_token1]; ACTIONS 55 [aux_sym__literalInt_token2;
   aux_sym__literalInt_token3]; ACTIONS 53 [aux_sym__literalFloat_token1]; ACTIONS 61 [sym_kAdd;
   sym_kSub]; ACTIONS 63 [sym_kAt]; ACTIONS 65 [sym_kTrue; sym_kFalse];
   ACTIONS 11322 [sym_labelNumber]; ACTIONS 3 [sym__space]; ACTIONS 5 [sym_ppDirective];
   ACTIONS 3 [sym_comment]; ACTIONS 65 [sym_ppFragmentExpr];
   ACTIONS 49 [sym__literalStringMultiline]; ACTIONS 11324 [sym_identifier];
   ACTIONS 73 [sym_kSpecialize]; ACTIONS 11372 [sym_kAsm]; ACTIONS 11374 [sym_kBegin];
   ACTIONS 11376 [sym_kCase]; ACTIONS 11076 [sym_kConst]; ACTIONS 11378 [sym_kFor];
   ACTIONS 11080 [sym_kFunction]; ACTIONS 11380 [sym_kGoto]; ACTIONS 11382 [sym_kIf];
   ACTIONS 105 [sym_kInherited]; ACTIONS 65 [sym_kNil]; ACTIONS 63 [sym_kNot];
   ACTIONS 11080 [sym_kProcedure]; ACTIONS 11384 [sym_kRaise]; ACTIONS 11386 [sym_kRepeat];
   ACTIONS 117 [sym_kString]; ACTIONS 11388 [sym_kTry]; ACTIONS 11092 [sym_kVar];
   ACTIONS 11390 [sym_kWhile]; ACTIONS 11392 [sym_kWith]].

(** State 1470. *)
Definition ts_parse_table_1470 : parse_row :=
  [STATE 14637 [sym_if]; STATE 15727 [sym_ifElse; sym_while; sym_repeat; sym_for; sym_foreach;
   sym_try; sym_case; sym_block; sym_asm; sym_with; sym_raise; sym_statement; sym_goto;
   sym__statement]; STATE 15512 [sym_assignment]; STATE 11829 [sym_varAssignDef];
   STATE 15512 [sym_varDef; sym_constDef]; STATE 6374 [sym_label]; STATE 8444 [sym__expr;
   sym_exprConditional]; STATE 7765 [sym__ref; sym_lambda; sym_inherited; sym_exprDot;
   sym_exprDeref; sym_exprAs; sym_exprTpl; sym_exprSubscript; sym_exprCall];
   STATE 8444 [sym_exprBinary; sym_exprUnary]; STATE 7765 [sym_exprParens; sym_exprBrackets;
   sym__literal; sym_literalString]; STATE 6994 [sym__literalString; sym_literalChar];
   STATE 7765 [sym_literalNumber]; STATE 7888 [sym__literalInt; sym__literalFloat];
   STATE 6374 [aux_sym_labeledStatement_repeat1]; STATE 6994 [aux_sym_literalString_repeat1];
   ACTIONS 10716 [anon_sym_SEMI]; ACTIONS 11060 [anon_sym_LBRACK]; ACTIONS 47 [anon_sym_LPAREN];
   ACTIONS 49 [aux_sym__literalString_token1]; ACTIONS 51 [anon_sym_POUND];
   ACTIONS 53 [aux_sym__literalInt_token1]; ACTIONS 55 [aux_sym__literalInt_token2;
   aux_sym__literalInt_token3]; ACTIONS 53 [aux_sym__literalFloat_token1]; ACTIONS 61 [sym_kAdd;
   sym_kSub]; ACTIONS 63 [sym_kAt]; ACTIONS 65 [sym_kTrue; sym_kFalse];
   ACTIONS 11322 [sym_labelNumber]; ACTIONS 3 [sym__space]; ACTIONS 5 [sym_ppDirective];
   ACTIONS 3 [sym_comment]; ACTIONS 65 [sym_ppFragmentExpr];
   ACTIONS 49 [sym__literalStringMultiline]; ACTIONS 11324 [sym_identifier];
   ACTIONS 73 [sym_kSpecialize]; ACTIONS 11394 [sym_kAsm]; ACTIONS 11396 [sym_kBegin];
   ACTIONS 11398 [sym_kCase]; ACTIONS 11076 [sym_kConst]; ACTIONS 11400 [sym_kFor];
   ACTIONS 11080 [sym_kFunction]; ACTIONS 11402 [sym_kGoto]; ACTIONS 11404 [sym_kIf];
   ACTIONS 105 [sym_kInherited]; ACTIONS 65 [sym_kNil]; ACTIONS 63 [sym_kNot];
   ACTIONS 11080 [sym_kProcedure]; ACTIONS 11406 [sym_kRaise]; ACTIONS 11408 [sym_kRepeat];
   ACTIONS 117 [sym_kString]; ACTIONS 11410 [sym_kTry]; ACTIONS 11092 [sym_kVar];
   ACTIONS 11412 [sym_kWhile]; ACTIONS 11414 [sym_kWith]].

(** State 1471. *)
Definition ts_parse_table_1471 : parse_row :=
  [STATE 5914 [sym_if]; STATE 5926 [sym_ifElse; sym_while; sym_repeat; sym_for; sym_foreach;
   sym_try; sym_case; sym_block; sym_asm; sym_with; sym_raise; sym_statement; sym_goto];
   STATE 5905 [sym_labeledStatement]; STATE 5926 [sym__statement]; STATE 14947 [sym_assignment];
   STATE 11829 [sym_varAssignDef]; STATE 14947 [sym_varDef; sym_constDef];
   STATE 1466 [sym_label]; STATE 8450 [sym__expr; sym_exprConditional]; STATE 7765 [sym__ref;
   sym_lambda; sym_inherited; sym_exprDot; sym_exprDeref; sym_exprAs; sym_exprTpl;
   sym_exprSubscript; sym_exprCall]; STATE 8450 [sym_exprBinary; sym_exprUnary];
   STATE 7765 [sym_exprParens; sym_exprBrackets; sym__literal; sym_literalString];
   STATE 6994 [sym__literalString; sym_literalChar]; STATE 7765 [sym_literalNumber];
   STATE 7888 [sym__literalInt; sym__literalFloat]; STATE 6994 [aux_sym_literalString_repeat1];
   ACTIONS 10652 [anon_sym_SEMI]; ACTIONS 11060 [anon_sym_LBRACK]; ACTIONS 47 [anon_sym_LPAREN];
   ACTIONS 49 [aux_sym__literalString_token1]; ACTIONS 51 [anon_sym_POUND];
   ACTIONS 53 [aux_sym__literalInt_token1]; ACTIONS 55 [aux_sym__literalInt_token2;
   aux_sym__literalInt_token3]; ACTIONS 53 [aux_sym__literalFloat_token1]; ACTIONS 61 [sym_kAdd;
   sym_kSub]; ACTIONS 63 [sym_kAt]; ACTIONS 65 [sym_kTrue; sym_kFalse];
   ACTIONS 11322 [sym_labelNumber]; ACTIONS 3 [sym__space]; ACTIONS 5 [sym_ppDirective];
   ACTIONS 3 [sym_comment]; ACTIONS 65 [sym_ppFragmentExpr];
   ACTIONS 49 [sym__literalStringMultiline]; ACTIONS 11324 [sym_identifier];
   ACTIONS 73 [sym_kSpecialize]; ACTIONS 11070 [sym_kAsm]; ACTIONS 11072 [sym_kBegin];
   ACTIONS 11074 [sym_kCase]; ACTIONS 11076 [sym_kConst]; ACTIONS 11078 [sym_kFor];
   ACTIONS 11080 [sym_kFunction]; ACTIONS 11082 [sym_kGoto]; ACTIONS 11084 [sym_kIf];
   ACTIONS 105 [sym_kInherited]; ACTIONS 65 [sym_kNil]; ACTIONS 63 [sym_kNot];
   ACTIONS 11080 [sym_kProcedure]; ACTIONS 11086 [sym_kRaise]; ACTIONS 11088 [sym_kRepeat];
   ACTIONS 117 [sym_kString]; ACTIONS 11090 [sym_kTry]; ACTIONS 11092 [sym_kVar];
   ACTIONS 11094 [sym_kWhile]; ACTIONS 11096 [sym_kWith]].

(** State 1472. *)
Definition ts_parse_table_1472 : parse_row :=
  [STATE 15084 [sym_if]; STATE 14661 [sym_ifElse; sym_while; sym_repeat; sym_for; sym_foreach;
   sym_try; sym_case; sym_block; sym_asm; sym_with; sym_raise; sym_statement; sym_goto;
   sym__statement]; STATE 14151 [sym_assignment]; STATE 11829 [sym_varAssignDef];
   STATE 14151 [sym_varDef; sym_constDef]; STATE 6374 [sym_label]; STATE 8337 [sym__expr;
   sym_exprConditional]; STATE 7765 [sym__ref; sym_lambda; sym_inherited; sym_exprDot;
   sym_exprDeref; sym_exprAs; sym_exprTpl; sym_exprSubscript; sym_exprCall];
   STATE 8337 [sym_exprBinary; sym_exprUnary]; STATE 7765 [sym_exprParens; sym_exprBrackets;
   sym__literal; sym_literalString]; STATE 6994 [sym__literalString; sym_literalChar];
   STATE 7765 [sym_literalNumber]; STATE 7888 [sym__literalInt; sym__literalFloat];
   STATE 6374 [aux_sym_labeledStatement_repeat1]; STATE 6994 [aux_sym_literalString_repeat1];
   ACTIONS 10918 [anon_sym_SEMI]; ACTIONS 11060 [anon_sym_LBRACK]; ACTIONS 47 [anon_sym_LPAREN];
   ACTIONS 49 [aux_sym__literalString_token1]; ACTIONS 51 [anon_sym_POUND];
   ACTIONS 53 [aux_sym__literalInt_token1]; ACTIONS 55 [aux_sym__literalInt_token2;
   aux_sym__literalInt_token3]; ACTIONS 53 [aux_sym__literalFloat_token1]; ACTIONS 61 [sym_kAdd;
   sym_kSub]; ACTIONS 63 [sym_kAt]; ACTIONS 65 [sym_kTrue; sym_kFalse];
   ACTIONS 11322 [sym_labelNumber]; ACTIONS 3 [sym__space]; ACTIONS 5 [sym_ppDirective];
   ACTIONS 3 [sym_comment]; ACTIONS 65 [sym_ppFragmentExpr];
   ACTIONS 49 [sym__literalStringMultiline]; ACTIONS 11324 [sym_identifier];
   ACTIONS 73 [sym_kSpecialize]; ACTIONS 11438 [sym_kAsm]; ACTIONS 11440 [sym_kBegin];
   ACTIONS 11442 [sym_kCase]; ACTIONS 11076 [sym_kConst]; ACTIONS 11444 [sym_kFor];
   ACTIONS 11080 [sym_kFunction]; ACTIONS 11446 [sym_kGoto]; ACTIONS 11448 [sym_kIf];
   ACTIONS 105 [sym_kInherited]; ACTIONS 65 [sym_kNil]; ACTIONS 63 [sym_kNot];
   ACTIONS 11080 [sym_kProcedure]; ACTIONS 11450 [sym_kRaise]; ACTIONS 11452 [sym_kRepeat];
   ACTIONS 117 [sym_kString]; ACTIONS 11454 [sym_kTry]; ACTIONS 11092 [sym_kVar];
   ACTIONS 11456 [sym_kWhile]; ACTIONS 11458 [sym_kWith]].

(** State 1473. *)
Definition ts_parse_table_1473 : parse_row :=
  [STATE 14637 [sym_if]; STATE 14169 [sym_ifElse; sym_while; sym_repeat; sym_for; sym_foreach;
   sym_try; sym_case; sym_block; sym_asm; sym_with; sym_raise; sym_statement; sym_goto;
   sym_labeledStatement; sym__statement]; STATE 15512 [sym_assignment];
   STATE 11829 [sym_varAssignDef]; STATE 15512 [sym_varDef; sym_constDef];
   STATE 1444 [sym_label]; STATE 8444 [sym__expr; sym_exprConditional]; STATE 7765 [sym__ref;
   sym_lambda; sym_inherited; sym_exprDot; sym_exprDeref; sym_exprAs; sym_exprTpl;
   sym_exprSubscript; sym_exprCall]; STATE 8444 [sym_exprBinary; sym_exprUnary];
   STATE 7765 [sym_exprParens; sym_exprBrackets; sym__literal; sym_literalString];
   STATE 6994 [sym__literalString; sym_literalChar]; STATE 7765 [sym_literalNumber];
   STATE 7888 [sym__literalInt; sym__literalFloat]; STATE 6994 [aux_sym_literalString_repeat1];
   ACTIONS 10232 [anon_sym_SEMI]; ACTIONS 11060 [anon_sym_LBRACK]; ACTIONS 47 [anon_sym_LPAREN];
   ACTIONS 49 [aux_sym__literalString_token1]; ACTIONS 51 [anon_sym_POUND];
   ACTIONS 53 [aux_sym__literalInt_token1]; ACTIONS 55 [aux_sym__literalInt_token2;
   aux_sym__literalInt_token3]; ACTIONS 53 [aux_sym__literalFloat_token1]; ACTIONS 61 [sym_kAdd;
   sym_kSub]; ACTIONS 63 [sym_kAt]; ACTIONS 65 [sym_kTrue; sym_kFalse];
   ACTIONS 11322 [sym_labelNumber]; ACTIONS 3 [sym__space]; ACTIONS 5 [sym_ppDirective];
   ACTIONS 3 [sym_comment]; ACTIONS 65 [sym_ppFragmentExpr];
   ACTIONS 49 [sym__literalStringMultiline]; ACTIONS 11324 [sym_identifier];
   ACTIONS 73 [sym_kSpecialize]; ACTIONS 11394 [sym_kAsm]; ACTIONS 11396 [sym_kBegin];
   ACTIONS 11398 [sym_kCase]; ACTIONS 11076 [sym_kConst]; ACTIONS 11400 [sym_kFor];
   ACTIONS 11080 [sym_kFunction]; ACTIONS 11402 [sym_kGoto]; ACTIONS 11404 [sym_kIf];
   ACTIONS 105 [sym_kInherited]; ACTIONS 65 [sym_kNil]; ACTIONS 63 [sym_kNot];
   ACTIONS 11080 [sym_kProcedure]; ACTIONS 11406 [sym_kRaise]; ACTIONS 11408 [sym_kRepeat];
   ACTIONS 117 [sym_kString]; ACTIONS 11410 [sym_kTry]; ACTIONS 11092 [sym_kVar];
   ACTIONS 11412 [sym_kWhile]; ACTIONS 11414 [sym_kWith]].

(** State 1474. *)
Definition ts_parse_table_1474 : parse_row :=
  [STATE 5914 [sym_if]; STATE 5931 [sym_ifElse; sym_while; sym_repeat; sym_for; sym_foreach;
   sym_try; sym_case; sym_block; sym_asm; sym_with; sym_raise; sym_statement; sym_goto;
   sym_labeledStatement; sym__statement]; STATE 14947 [sym_assignment];
   STATE 11829 [sym_varAssignDef]; STATE 14947 [sym_varDef; sym_constDef];
   STATE 1466 [sym_label]; STATE 8450 [sym__expr; sym_exprConditional]; STATE 7765 [sym__ref;
   sym_lambda; sym_inherited; sym_exprDot; sym_exprDeref; sym_exprAs; sym_exprTpl;
   sym_exprSubscript; sym_exprCall]; STATE 8450 [sym_exprBinary; sym_exprUnary];
   STATE 7765 [sym_exprParens; sym_exprBrackets; sym__literal; sym_literalString];
   STATE 6994 [sym__literalString; sym_literalChar]; STATE 7765 [sym_literalNumber];
   STATE 7888 [sym__literalInt; sym__literalFloat]; STATE 6994 [aux_sym_literalString_repeat1];
   ACTIONS 10654 [anon_sym_SEMI]; ACTIONS 11060 [anon_sym_LBRACK]; ACTIONS 47 [anon_sym_LPAREN];
   ACTIONS 49 [aux_sym__literalString_token1]; ACTIONS 51 [anon_sym_POUND];
   ACTIONS 53 [aux_sym__literalInt_token1]; ACTIONS 55 [aux_sym__literalInt_token2;
   aux_sym__literalInt_token3]; ACTIONS 53 [aux_sym__literalFloat_token1]; ACTIONS 61 [sym_kAdd;
   sym_kSub]; ACTIONS 63 [sym_kAt]; ACTIONS 65 [sym_kTrue; sym_kFalse];
   ACTIONS 11322 [sym_labelNumber]; ACTIONS 3 [sym__space]; ACTIONS 5 [sym_ppDirective];
   ACTIONS 3 [sym_comment]; ACTIONS 65 [sym_ppFragmentExpr];
   ACTIONS 49 [sym__literalStringMultiline]; ACTIONS 11324 [sym_identifier];
   ACTIONS 73 [sym_kSpecialize]; ACTIONS 11070 [sym_kAsm]; ACTIONS 11072 [sym_kBegin];
   ACTIONS 11074 [sym_kCase]; ACTIONS 11076 [sym_kConst]; ACTIONS 11078 [sym_kFor];
   ACTIONS 11080 [sym_kFunction]; ACTIONS 11082 [sym_kGoto]; ACTIONS 11084 [sym_kIf];
   ACTIONS 105 [sym_kInherited]; ACTIONS 65 [sym_kNil]; ACTIONS 63 [sym_kNot];
   ACTIONS 11080 [sym_kProcedure]; ACTIONS 11086 [sym_kRaise]; ACTIONS 11088 [sym_kRepeat];
   ACTIONS 117 [sym_kString]; ACTIONS 11090 [sym_kTry]; ACTIONS 11092 [sym_kVar];
   ACTIONS 11094 [sym_kWhile]; ACTIONS 11096 [sym_kWith]].

(** State 1475. *)
Definition ts_parse_table_1475 : parse_row :=
  [STATE 5914 [sym_if]; STATE 5984 [sym_ifElse; sym_while; sym_repeat; sym_for; sym_foreach;
   sym_try; sym_case; sym_block; sym_asm; sym_with; sym_raise; sym_statement; sym_goto;
   sym_labeledStatement; sym__statement]; STATE 14947 [sym_assignment];
   STATE 11829 [sym_varAssignDef]; STATE 14947 [sym_varDef; sym_constDef];
   STATE 1466 [sym_label]; STATE 8450 [sym__expr; sym_exprConditional]; STATE 7765 [sym__ref;
   sym_lambda; sym_inherited; sym_exprDot; sym_exprDeref; sym_exprAs; sym_exprTpl;
   sym_exprSubscript; sym_exprCall]; STATE 8450 [sym_exprBinary; sym_exprUnary];
   STATE 7765 [sym_exprParens; sym_exprBrackets; sym__literal; sym_literalString];
   STATE 6994 [sym__literalString; sym_literalChar]; STATE 7765 [sym_literalNumber];
   STATE 7888 [sym__literalInt; sym__literalFloat]; STATE 6994 [aux_sym_literalString_repeat1];
   ACTIONS 10658 [anon_sym_SEMI]; ACTIONS 11060 [anon_sym_LBRACK]; ACTIONS 47 [anon_sym_LPAREN];
   ACTIONS 49 [aux_sym__literalString_token1]; ACTIONS 51 [anon_sym_POUND];
   ACTIONS 53 [aux_sym__literalInt_token1]; ACTIONS 55 [aux_sym__literalInt_token2;
   aux_sym__literalInt_token3]; ACTIONS 53 [aux_sym__literalFloat_token1]; ACTIONS 61 [sym_kAdd;
   sym_kSub]; ACTIONS 63 [sym_kAt]; ACTIONS 65 [sym_kTrue; sym_kFalse];
   ACTIONS 11322 [sym_labelNumber]; ACTIONS 3 [sym__space]; ACTIONS 5 [sym_ppDirective];
   ACTIONS 3 [sym_comment]; ACTIONS 65 [sym_ppFragmentExpr];
   ACTIONS 49 [sym__literalStringMultiline]; ACTIONS 11324 [sym_identifier];
   ACTIONS 73 [sym_kSpecialize]; ACTIONS 11070 [sym_kAsm]; ACTIONS 11072 [sym_kBegin];
   ACTIONS 11074 [sym_kCase]; ACTIONS 11076 [sym_kConst]; ACTIONS 11078 [sym_kFor];
   ACTIONS 11080 [sym_kFunction]; ACTIONS 11082 [sym_kGoto]; ACTIONS 11084 [sym_kIf];
   ACTIONS 105 [sym_kInherited]; ACTIONS 65 [sym_kNil]; ACTIONS 63 [sym_kNot];
   ACTIONS 11080 [sym_kProcedure]; ACTIONS 11086 [sym_kRaise]; ACTIONS 11088 [sym_kRepeat];
   ACTIONS 117 [sym_kString]; ACTIONS 11090 [sym_kTry]; ACTIONS 11092 [sym_kVar];
   ACTIONS 11094 [sym_kWhile]; ACTIONS 11096 [sym_kWith]].

(** State 1476. *)
Definition ts_parse_table_1476 : parse_row :=
  [STATE 2854 [sym__ppIf]; STATE 2172 [sym__procAttributeNoExt];
   STATE 2187 [sym__procAttributesPp]; STATE 15605 [sym_procAttribute];
   STATE 1522 [aux_sym__declProc_repeat1]; ACTIONS 11638 [anon_sym_LBRACK];
   ACTIONS 2597 [aux_sym_ppUsesBlock_token1]; ACTIONS 3 [sym__space];
   ACTIONS 5 [sym_ppDirective]; ACTIONS 3 [sym_comment]; ACTIONS 1016 [sym_kDefault;
   sym_kNodefault]; ACTIONS 11641 [sym_kDispId]; ACTIONS 2590 [sym_kGeneric; sym_kOperator];
   ACTIONS 11643 [sym_kPublic]; ACTIONS 2590 [sym_kForward]; ACTIONS 1016 [sym_kStatic;
   sym_kVirtual; sym_kAbstract; sym_kDynamic; sym_kOverride; sym_kOverload; sym_kReintroduce;
   sym_kStdcall; sym_kCdecl; sym_kCppdecl; sym_kPascal; sym_kRegister; sym_kMwpascal];
   ACTIONS 2590 [sym_kExternal]; ACTIONS 11645 [sym_kMessage]; ACTIONS 11647 [sym_kDeprecated];
   ACTIONS 1016 [sym_kExperimental; sym_kPlatform; sym_kUnimplemented; sym_kCvar];
   ACTIONS 11649 [sym_kExport]; ACTIONS 1016 [sym_kFar; sym_kNear; sym_kSafecall; sym_kAssembler;
   sym_kNostackframe; sym_kInterrupt; sym_kNoreturn; sym_kIocheck; sym_kLocal; sym_kHardfloat;
   sym_kSoftfloat; sym_kMs_abi_default; sym_kMs_abi_cdecl; sym_kSaveregisters;
   sym_kSysv_abi_default; sym_kSysv_abi_cdecl; sym_kVectorcall; sym_kVarargs; sym_kWinapi];
   ACTIONS 11651 [sym_kAlias]; ACTIONS 2590 [sym_kClass; sym_kConst; sym_kConstructor;
   sym_kDestructor; sym_kEnd; sym_kExports; sym_kFinalization; sym_kFunction;
   sym_kImplementation; sym_kInitialization]; ACTIONS 1016 [sym_kInline];
   ACTIONS 2590 [sym_kInterface; sym_kLabel; sym_kProcedure; sym_kProperty; sym_kResourcestring;
   sym_kThreadvar; sym_kType; sym_kUses; sym_kVar]].

(** State 1477. *)
Definition ts_parse_table_1477 : parse_row :=
  [STATE 42 [sym__ppIf]; STATE 1479 [sym_ppBlock; sym_declVar]; STATE 5457 [sym_rttiAttributes];
   STATE 1479 [aux_sym_declVars_repeat1]; STATE 5458 [aux_sym_declVar_repeat1];
   STATE 4094 [aux_sym_rttiAttributes_repeat2]; ACTIONS 3671 [anon_sym_LBRACK];
   ACTIONS 3676 [aux_sym_ppUsesBlock_token1]; ACTIONS 3 [sym__space];
   ACTIONS 5 [sym_ppDirective]; ACTIONS 3 [sym_comment]; ACTIONS 11653 [sym_identifier];
   ACTIONS 11655 [sym_kDefault; sym_kNodefault; sym_kDispId]; ACTIONS 3669 [sym_kGeneric];
   ACTIONS 11657 [sym_kOperator]; ACTIONS 11655 [sym_kPublic; sym_kStatic; sym_kVirtual;
   sym_kAbstract; sym_kDynamic; sym_kOverride; sym_kOverload; sym_kReintroduce; sym_kStdcall;
   sym_kCdecl; sym_kCppdecl; sym_kPascal; sym_kRegister; sym_kMwpascal; sym_kMessage;
   sym_kDeprecated; sym_kExperimental; sym_kPlatform; sym_kUnimplemented; sym_kCvar; sym_kExport;
   sym_kFar; sym_kNear; sym_kSafecall; sym_kAssembler; sym_kNostackframe; sym_kInterrupt;
   sym_kNoreturn; sym_kIocheck; sym_kLocal; sym_kHardfloat; sym_kSoftfloat; sym_kMs_abi_default;
   sym_kMs_abi_cdecl; sym_kSaveregisters; sym_kSysv_abi_default; sym_kSysv_abi_cdecl;
   sym_kVectorcall; sym_kVarargs; sym_kWinapi; sym_kAlias]; ACTIONS 3669 [sym_kClass; sym_kConst;
   sym_kConstructor; sym_kDestructor; sym_kEnd; sym_kExports; sym_kFinalization; sym_kFunction;
   sym_kImplementation; sym_kInitialization; sym_kInterface; sym_kLabel; sym_kProcedure;
   sym_kProperty; sym_kResourcestring; sym_kThreadvar; sym_kType; sym_kUses; sym_kVar]].

(** State 1478. *)
Definition ts_parse_table_1478 : parse_row :=
  [STATE 2854 [sym__ppIf]; STATE 2172 [sym__procAttributeNoExt];
   STATE 2187 [sym__procAttributesPp]; STATE 15605 [sym_procAttribute];
   STATE 1484 [aux_sym__declProc_repeat1]; ACTIONS 11660 [anon_sym_LBRACK];
   ACTIONS 1341 [aux_sym_ppUsesBlock_token1]; ACTIONS 3 [sym__space];
   ACTIONS 5 [sym_ppDirective]; ACTIONS 3 [sym_comment]; ACTIONS 1016 [sym_kDefault;
   sym_kNodefault]; ACTIONS 11641 [sym_kDispId]; ACTIONS 1334 [sym_kGeneric; sym_kOperator];
   ACTIONS 11643 [sym_kPublic]; ACTIONS 1334 [sym_kForward]; ACTIONS 1016 [sym_kStatic;
   sym_kVirtual; sym_kAbstract; sym_kDynamic; sym_kOverride; sym_kOverload; sym_kReintroduce;
   sym_kStdcall; sym_kCdecl; sym_kCppdecl; sym_kPascal; sym_kRegister; sym_kMwpascal];
   ACTIONS 1334 [sym_kExternal]; ACTIONS 11645 [sym_kMessage]; ACTIONS 11647 [sym_kDeprecated];
   ACTIONS 1016 [sym_kExperimental; sym_kPlatform; sym_kUnimplemented; sym_kCvar];
   ACTIONS 11649 [sym_kExport]; ACTIONS 1016 [sym_kFar; sym_kNear; sym_kSafecall; sym_kAssembler;
   sym_kNostackframe; sym_kInterrupt; sym_kNoreturn; sym_kIocheck; sym_kLocal; sym_kHardfloat;
   sym_kSoftfloat; sym_kMs_abi_default; sym_kMs_abi_cdecl; sym_kSaveregisters;
   sym_kSysv_abi_default; sym_kSysv_abi_cdecl; sym_kVectorcall; sym_kVarargs; sym_kWinapi];
   ACTIONS 11651 [sym_kAlias]; ACTIONS 1334 [sym_kClass; sym_kConst; sym_kConstructor;
   sym_kDestructor; sym_kEnd; sym_kExports; sym_kFinalization; sym_kFunction;
   sym_kImplementation; sym_kInitialization]; ACTIONS 1016 [sym_kInline];
   ACTIONS 1334 [sym_kInterface; sym_kLabel; sym_kProcedure; sym_kProperty; sym_kResourcestring;
   sym_kThreadvar; sym_kType; sym_kUses; sym_kVar]].

(** State 1479. *)
Definition ts_parse_table_1479 : parse_row :=
  [STATE 42 [sym__ppIf]; STATE 1479 [sym_ppBlock; sym_declVar]; STATE 5457 [sym_rttiAttributes];
   STATE 1479 [aux_sym_declVars_repeat1]; STATE 5458 [aux_sym_declVar_repeat1];
   STATE 4094 [aux_sym_rttiAttributes_repeat2]; ACTIONS 3695 [anon_sym_LBRACK];
   ACTIONS 3700 [aux_sym_ppUsesBlock_token1]; ACTIONS 3 [sym__space];
   ACTIONS 5 [sym_ppDirective]; ACTIONS 3 [sym_comment]; ACTIONS 11663 [sym_identifier];
   ACTIONS 11666 [sym_kDefault; sym_kNodefault; sym_kDispId]; ACTIONS 3693 [sym_kGeneric];
   ACTIONS 11666 [sym_kOperator; sym_kPublic; sym_kStatic; sym_kVirtual; sym_kAbstract;
   sym_kDynamic; sym_kOverride; sym_kOverload; sym_kReintroduce; sym_kStdcall; sym_kCdecl;
   sym_kCppdecl; sym_kPascal; sym_kRegister; sym_kMwpascal; sym_kMessage; sym_kDeprecated;
   sym_kExperimental; sym_kPlatform; sym_kUnimplemented; sym_kCvar; sym_kExport; sym_kFar;
   sym_kNear; sym_kSafecall; sym_kAssembler; sym_kNostackframe; sym_kInterrupt; sym_kNoreturn;
   sym_kIocheck; sym_kLocal; sym_kHardfloat; sym_kSoftfloat; sym_kMs_abi_default;
   sym_kMs_abi_cdecl; sym_kSaveregisters; sym_kSysv_abi_default; sym_kSysv_abi_cdecl;
   sym_kVectorcall; sym_kVarargs; sym_kWinapi; sym_kAlias]; ACTIONS 3693 [sym_kClass; sym_kConst;
   sym_kConstructor; sym_kDestructor; sym_kEnd; sym_kExports; sym_kFinalization; sym_kFunction;
   sym_kImplementation; sym_kInitialization; sym_kInterface; sym_kLabel; sym_kProcedure;
   sym_kProperty; sym_kResourcestring; sym_kThreadvar; sym_kType; sym_kUses; sym_kVar]].

(** State 1480. *)
Definition ts_parse_table_1480 : parse_row :=
  [STATE 2854 [sym__ppIf]; STATE 2172 [sym__procAttributeNoExt];
   STATE 2187 [sym__procAttributesPp]; STATE 15605 [sym_procAttribute];
   STATE 1489 [aux_sym__declProc_repeat1]; ACTIONS 11669 [anon_sym_LBRACK];
   ACTIONS 1390 [aux_sym_ppUsesBlock_token1]; ACTIONS 3 [sym__space];
   ACTIONS 5 [sym_ppDirective]; ACTIONS 3 [sym_comment]; ACTIONS 1016 [sym_kDefault;
   sym_kNodefault]; ACTIONS 11641 [sym_kDispId]; ACTIONS 1383 [sym_kGeneric; sym_kOperator];
   ACTIONS 11643 [sym_kPublic]; ACTIONS 1383 [sym_kForward]; ACTIONS 1016 [sym_kStatic;
   sym_kVirtual; sym_kAbstract; sym_kDynamic; sym_kOverride; sym_kOverload; sym_kReintroduce;
   sym_kStdcall; sym_kCdecl; sym_kCppdecl; sym_kPascal; sym_kRegister; sym_kMwpascal];
   ACTIONS 1383 [sym_kExternal]; ACTIONS 11645 [sym_kMessage]; ACTIONS 11647 [sym_kDeprecated];
   ACTIONS 1016 [sym_kExperimental; sym_kPlatform; sym_kUnimplemented; sym_kCvar];
   ACTIONS 11649 [sym_kExport]; ACTIONS 1016 [sym_kFar; sym_kNear; sym_kSafecall; sym_kAssembler;
   sym_kNostackframe; sym_kInterrupt; sym_kNoreturn; sym_kIocheck; sym_kLocal; sym_kHardfloat;
   sym_kSoftfloat; sym_kMs_abi_default; sym_kMs_abi_cdecl; sym_kSaveregisters;
   sym_kSysv_abi_default; sym_kSysv_abi_cdecl; sym_kVectorcall; sym_kVarargs; sym_kWinapi];
   ACTIONS 11651 [sym_kAlias]; ACTIONS 1383 [sym_kClass; sym_kConst; sym_kConstructor;
   sym_kDestructor; sym_kEnd; sym_kExports; sym_kFinalization; sym_kFunction;
   sym_kImplementation; sym_kInitialization]; ACTIONS 1016 [sym_kInline];
   ACTIONS 1383 [sym_kInterface; sym_kLabel; sym_kProcedure; sym_kProperty; sym_kResourcestring;
   sym_kThreadvar; sym_kType; sym_kUses; sym_kVar]].

(** State 1481. *)
Definition ts_parse_table_1481 : parse_row :=
  [STATE 38 [sym__ppIf]; STATE 1483 [sym_ppBlock; sym_declVar]; STATE 5451 [sym_rttiAttributes];
   STATE 1483 [aux_sym_declVars_repeat1]; STATE 5452 [aux_sym_declVar_repeat1];
   STATE 4094 [aux_sym_rttiAttributes_repeat2]; ACTIONS 3368 [anon_sym_LBRACK];
   ACTIONS 3373 [aux_sym_ppUsesBlock_token1]; ACTIONS 3 [sym__space];
   ACTIONS 5 [sym_ppDirective]; ACTIONS 3 [sym_comment]; ACTIONS 11672 [sym_identifier];
   ACTIONS 11674 [sym_kDefault; sym_kNodefault; sym_kDispId]; ACTIONS 3366 [sym_kGeneric];
   ACTIONS 11676 [sym_kOperator]; ACTIONS 11674 [sym_kPublic; sym_kStatic; sym_kVirtual;
   sym_kAbstract; sym_kDynamic; sym_kOverride; sym_kOverload; sym_kReintroduce; sym_kStdcall;
   sym_kCdecl; sym_kCppdecl; sym_kPascal; sym_kRegister; sym_kMwpascal; sym_kMessage;
   sym_kDeprecated; sym_kExperimental; sym_kPlatform; sym_kUnimplemented; sym_kCvar; sym_kExport;
   sym_kFar; sym_kNear; sym_kSafecall; sym_kAssembler; sym_kNostackframe; sym_kInterrupt;
   sym_kNoreturn; sym_kIocheck; sym_kLocal; sym_kHardfloat; sym_kSoftfloat; sym_kMs_abi_default;
   sym_kMs_abi_cdecl; sym_kSaveregisters; sym_kSysv_abi_default; sym_kSysv_abi_cdecl;
   sym_kVectorcall; sym_kVarargs; sym_kWinapi; sym_kAlias]; ACTIONS 3366 [sym_kBegin; sym_kClass;
   sym_kConst; sym_kConstructor; sym_kDestructor; sym_kEnd; sym_kExports; sym_kFinalization;
   sym_kFunction; sym_kImplementation; sym_kInitialization; sym_kInterface; sym_kLabel;
   sym_kProcedure; sym_kResourcestring; sym_kThreadvar; sym_kType; sym_kUses; sym_kVar]].

(** State 1482. *)
Definition ts_parse_table_1482 : parse_row :=
  [STATE 38 [sym__ppIf]; STATE 1487 [sym_ppBlock; sym_declVar]; STATE 5451 [sym_rttiAttributes];
   STATE 1487 [aux_sym_declVars_repeat1]; STATE 5452 [aux_sym_declVar_repeat1];
   STATE 4094 [aux_sym_rttiAttributes_repeat2]; ACTIONS 3633 [anon_sym_LBRACK];
   ACTIONS 3638 [aux_sym_ppUsesBlock_token1]; ACTIONS 3 [sym__space];
   ACTIONS 5 [sym_ppDirective]; ACTIONS 3 [sym_comment]; ACTIONS 11672 [sym_identifier];
   ACTIONS 11674 [sym_kDefault; sym_kNodefault; sym_kDispId]; ACTIONS 3631 [sym_kGeneric];
   ACTIONS 11679 [sym_kOperator]; ACTIONS 11674 [sym_kPublic; sym_kStatic; sym_kVirtual;
   sym_kAbstract; sym_kDynamic; sym_kOverride; sym_kOverload; sym_kReintroduce; sym_kStdcall;
   sym_kCdecl; sym_kCppdecl; sym_kPascal; sym_kRegister; sym_kMwpascal; sym_kMessage;
   sym_kDeprecated; sym_kExperimental; sym_kPlatform; sym_kUnimplemented; sym_kCvar; sym_kExport;
   sym_kFar; sym_kNear; sym_kSafecall; sym_kAssembler; sym_kNostackframe; sym_kInterrupt;
   sym_kNoreturn; sym_kIocheck; sym_kLocal; sym_kHardfloat; sym_kSoftfloat; sym_kMs_abi_default;
   sym_kMs_abi_cdecl; sym_kSaveregisters; sym_kSysv_abi_default; sym_kSysv_abi_cdecl;
   sym_kVectorcall; sym_kVarargs; sym_kWinapi; sym_kAlias]; ACTIONS 3631 [sym_kBegin; sym_kClass;
   sym_kConst; sym_kConstructor; sym_kDestructor; sym_kEnd; sym_kExports; sym_kFinalization;
   sym_kFunction; sym_kImplementation; sym_kInitialization; sym_kInterface; sym_kLabel;
   sym_kProcedure; sym_kResourcestring; sym_kThreadvar; sym_kType; sym_kUses; sym_kVar]].

(** State 1483. *)
Definition ts_parse_table_1483 : parse_row :=
  [STATE 38 [sym__ppIf]; STATE 1492 [sym_ppBlock; sym_declVar]; STATE 5451 [sym_rttiAttributes];
   STATE 1492 [aux_sym_declVars_repeat1]; STATE 5452 [aux_sym_declVar_repeat1];
   STATE 4094 [aux_sym_rttiAttributes_repeat2]; ACTIONS 3633 [anon_sym_LBRACK];
   ACTIONS 3638 [aux_sym_ppUsesBlock_token1]; ACTIONS 3 [sym__space];
   ACTIONS 5 [sym_ppDirective]; ACTIONS 3 [sym_comment]; ACTIONS 11672 [sym_identifier];
   ACTIONS 11674 [sym_kDefault; sym_kNodefault; sym_kDispId]; ACTIONS 3631 [sym_kGeneric];
   ACTIONS 11679 [sym_kOperator]; ACTIONS 11674 [sym_kPublic; sym_kStatic; sym_kVirtual;
   sym_kAbstract; sym_kDynamic; sym_kOverride; sym_kOverload; sym_kReintroduce; sym_kStdcall;
   sym_kCdecl; sym_kCppdecl; sym_kPascal; sym_kRegister; sym_kMwpascal; sym_kMessage;
   sym_kDeprecated; sym_kExperimental; sym_kPlatform; sym_kUnimplemented; sym_kCvar; sym_kExport;
   sym_kFar; sym_kNear; sym_kSafecall; sym_kAssembler; sym_kNostackframe; sym_kInterrupt;
   sym_kNoreturn; sym_kIocheck; sym_kLocal; sym_kHardfloat; sym_kSoftfloat; sym_kMs_abi_default;
   sym_kMs_abi_cdecl; sym_kSaveregisters; sym_kSysv_abi_default; sym_kSysv_abi_cdecl;
   sym_kVectorcall; sym_kVarargs; sym_kWinapi; sym_kAlias]; ACTIONS 3631 [sym_kBegin; sym_kClass;
   sym_kConst; sym_kConstructor; sym_kDestructor; sym_kEnd; sym_kExports; sym_kFinalization;
   sym_kFunction; sym_kImplementation; sym_kInitialization; sym_kInterface; sym_kLabel;
   sym_kProcedure; sym_kResourcestring; sym_kThreadvar; sym_kType; sym_kUses; sym_kVar]].

(** State 1484. *)
Definition ts_parse_table_1484 : parse_row :=
  [STATE 2854 [sym__ppIf]; STATE 2172 [sym__procAttributeNoExt];
   STATE 2187 [sym__procAttributesPp]; STATE 15605 [sym_procAttribute];
   STATE 1532 [aux_sym__declProc_repeat1]; ACTIONS 11682 [anon_sym_LBRACK];
   ACTIONS 1439 [aux_sym_ppUsesBlock_token1]; ACTIONS 3 [sym__space];
   ACTIONS 5 [sym_ppDirective]; ACTIONS 3 [sym_comment]; ACTIONS 1016 [sym_kDefault;
   sym_kNodefault]; ACTIONS 11641 [sym_kDispId]; ACTIONS 1432 [sym_kGeneric; sym_kOperator];
   ACTIONS 11643 [sym_kPublic]; ACTIONS 1432 [sym_kForward]; ACTIONS 1016 [sym_kStatic;
   sym_kVirtual; sym_kAbstract; sym_kDynamic; sym_kOverride; sym_kOverload; sym_kReintroduce;
   sym_kStdcall; sym_kCdecl; sym_kCppdecl; sym_kPascal; sym_kRegister; sym_kMwpascal];
   ACTIONS 1432 [sym_kExternal]; ACTIONS 11645 [sym_kMessage]; ACTIONS 11647 [sym_kDeprecated];
   ACTIONS 1016 [sym_kExperimental; sym_kPlatform; sym_kUnimplemented; sym_kCvar];
   ACTIONS 11649 [sym_kExport]; ACTIONS 1016 [sym_kFar; sym_kNear; sym_kSafecall; sym_kAssembler;
   sym_kNostackframe; sym_kInterrupt; sym_kNoreturn; sym_kIocheck; sym_kLocal; sym_kHardfloat;
   sym_kSoftfloat; sym_kMs_abi_default; sym_kMs_abi_cdecl; sym_kSaveregisters;
   sym_kSysv_abi_default; sym_kSysv_abi_cdecl; sym_kVectorcall; sym_kVarargs; sym_kWinapi];
   ACTIONS 11651 [sym_kAlias]; ACTIONS 1432 [sym_kClass; sym_kConst; sym_kConstructor;
   sym_kDestructor; sym_kEnd; sym_kExports; sym_kFinalization; sym_kFunction;
   sym_kImplementation; sym_kInitialization]; ACTIONS 1016 [sym_kInline];
   ACTIONS 1432 [sym_kInterface; sym_kLabel; sym_kProcedure; sym_kProperty; sym_kResourcestring;
   sym_kThreadvar; sym_kType; sym_kUses; sym_kVar]].

(** State 1485. *)
Definition ts_parse_table_1485 : parse_row :=
  [STATE 2854 [sym__ppIf]; STATE 2172 [sym__procAttributeNoExt];
   STATE 2187 [sym__procAttributesPp]; STATE 15605 [sym_procAttribute];
   STATE 1494 [aux_sym__declProc_repeat1]; ACTIONS 11685 [anon_sym_LBRACK];
   ACTIONS 1484 [aux_sym_ppUsesBlock_token1]; ACTIONS 3 [sym__space];
   ACTIONS 5 [sym_ppDirective]; ACTIONS 3 [sym_comment]; ACTIONS 1016 [sym_kDefault;
   sym_kNodefault]; ACTIONS 11641 [sym_kDispId]; ACTIONS 1477 [sym_kGeneric; sym_kOperator];
   ACTIONS 11643 [sym_kPublic]; ACTIONS 1477 [sym_kForward]; ACTIONS 1016 [sym_kStatic;
   sym_kVirtual; sym_kAbstract; sym_kDynamic; sym_kOverride; sym_kOverload; sym_kReintroduce;
   sym_kStdcall; sym_kCdecl; sym_kCppdecl; sym_kPascal; sym_kRegister; sym_kMwpascal];
   ACTIONS 1477 [sym_kExternal]; ACTIONS 11645 [sym_kMessage]; ACTIONS 11647 [sym_kDeprecated];
   ACTIONS 1016 [sym_kExperimental; sym_kPlatform; sym_kUnimplemented; sym_kCvar];
   ACTIONS 11649 [sym_kExport]; ACTIONS 1016 [sym_kFar; sym_kNear; sym_kSafecall; sym_kAssembler;
   sym_kNostackframe; sym_kInterrupt; sym_kNoreturn; sym_kIocheck; sym_kLocal; sym_kHardfloat;
   sym_kSoftfloat; sym_kMs_abi_default; sym_kMs_abi_cdecl; sym_kSaveregisters;
   sym_kSysv_abi_default; sym_kSysv_abi_cdecl; sym_kVectorcall; sym_kVarargs; sym_kWinapi];
   ACTIONS 11651 [sym_kAlias]; ACTIONS 1477 [sym_kClass; sym_kConst; sym_kConstructor;
   sym_kDestructor; sym_kEnd; sym_kExports; sym_kFinalization; sym_kFunction;
   sym_kImplementation; sym_kInitialization]; ACTIONS 1016 [sym_kInline];
   ACTIONS 1477 [sym_kInterface; sym_kLabel; sym_kProcedure; sym_kProperty; sym_kResourcestring;
   sym_kThreadvar; sym_kType; sym_kUses; sym_kVar]].

(** State 1486. *)
Definition ts_parse_table_1486 : parse_row :=
  [STATE 2854 [sym__ppIf]; STATE 2172 [sym__procAttributeNoExt];
   STATE 2187 [sym__procAttributesPp]; STATE 15605 [sym_procAttribute];
   STATE 1495 [aux_sym__declProc_repeat1]; ACTIONS 11688 [anon_sym_LBRACK];
   ACTIONS 1515 [aux_sym_ppUsesBlock_token1]; ACTIONS 3 [sym__space];
   ACTIONS 5 [sym_ppDirective]; ACTIONS 3 [sym_comment]; ACTIONS 1016 [sym_kDefault;
   sym_kNodefault]; ACTIONS 11641 [sym_kDispId]; ACTIONS 1508 [sym_kGeneric; sym_kOperator];
   ACTIONS 11643 [sym_kPublic]; ACTIONS 1508 [sym_kForward]; ACTIONS 1016 [sym_kStatic;
   sym_kVirtual; sym_kAbstract; sym_kDynamic; sym_kOverride; sym_kOverload; sym_kReintroduce;
   sym_kStdcall; sym_kCdecl; sym_kCppdecl; sym_kPascal; sym_kRegister; sym_kMwpascal];
   ACTIONS 1508 [sym_kExternal]; ACTIONS 11645 [sym_kMessage]; ACTIONS 11647 [sym_kDeprecated];
   ACTIONS 1016 [sym_kExperimental; sym_kPlatform; sym_kUnimplemented; sym_kCvar];
   ACTIONS 11649 [sym_kExport]; ACTIONS 1016 [sym_kFar; sym_kNear; sym_kSafecall; sym_kAssembler;
   sym_kNostackframe; sym_kInterrupt; sym_kNoreturn; sym_kIocheck; sym_kLocal; sym_kHardfloat;
   sym_kSoftfloat; sym_kMs_abi_default; sym_kMs_abi_cdecl; sym_kSaveregisters;
   sym_kSysv_abi_default; sym_kSysv_abi_cdecl; sym_kVectorcall; sym_kVarargs; sym_kWinapi];
   ACTIONS 11651 [sym_kAlias]; ACTIONS 1508 [sym_kClass; sym_kConst; sym_kConstructor;
   sym_kDestructor; sym_kEnd; sym_kExports; sym_kFinalization; sym_kFunction;
   sym_kImplementation; sym_kInitialization]; ACTIONS 1016 [sym_kInline];
   ACTIONS 1508 [sym_kInterface; sym_kLabel; sym_kProcedure; sym_kProperty; sym_kResourcestring;
   sym_kThreadvar; sym_kType; sym_kUses; sym_kVar]].

(** State 1487. *)
Definition ts_parse_table_1487 : parse_row :=
  [STATE 38 [sym__ppIf]; STATE 1492 [sym_ppBlock; sym_declVar]; STATE 5451 [sym_rttiAttributes];
   STATE 1492 [aux_sym_declVars_repeat1]; STATE 5452 [aux_sym_declVar_repeat1];
   STATE 4094 [aux_sym_rttiAttributes_repeat2]; ACTIONS 3671 [anon_sym_LBRACK];
   ACTIONS 3676 [aux_sym_ppUsesBlock_token1]; ACTIONS 3 [sym__space];
   ACTIONS 5 [sym_ppDirective]; ACTIONS 3 [sym_comment]; ACTIONS 11672 [sym_identifier];
   ACTIONS 11674 [sym_kDefault; sym_kNodefault; sym_kDispId]; ACTIONS 3669 [sym_kGeneric];
   ACTIONS 11691 [sym_kOperator]; ACTIONS 11674 [sym_kPublic; sym_kStatic; sym_kVirtual;
   sym_kAbstract; sym_kDynamic; sym_kOverride; sym_kOverload; sym_kReintroduce; sym_kStdcall;
   sym_kCdecl; sym_kCppdecl; sym_kPascal; sym_kRegister; sym_kMwpascal; sym_kMessage;
   sym_kDeprecated; sym_kExperimental; sym_kPlatform; sym_kUnimplemented; sym_kCvar; sym_kExport;
   sym_kFar; sym_kNear; sym_kSafecall; sym_kAssembler; sym_kNostackframe; sym_kInterrupt;
   sym_kNoreturn; sym_kIocheck; sym_kLocal; sym_kHardfloat; sym_kSoftfloat; sym_kMs_abi_default;
   sym_kMs_abi_cdecl; sym_kSaveregisters; sym_kSysv_abi_default; sym_kSysv_abi_cdecl;
   sym_kVectorcall; sym_kVarargs; sym_kWinapi; sym_kAlias]; ACTIONS 3669 [sym_kBegin; sym_kClass;
   sym_kConst; sym_kConstructor; sym_kDestructor; sym_kEnd; sym_kExports; sym_kFinalization;
   sym_kFunction; sym_kImplementation; sym_kInitialization; sym_kInterface; sym_kLabel;
   sym_kProcedure; sym_kResourcestring; sym_kThreadvar; sym_kType; sym_kUses; sym_kVar]].

(** State 1488. *)
Definition ts_parse_table_1488 : parse_row :=
  [STATE 2854 [sym__ppIf]; STATE 2172 [sym__procAttributeNoExt];
   STATE 2187 [sym__procAttributesPp]; STATE 15605 [sym_procAttribute];
   STATE 1497 [aux_sym__declProc_repeat1]; ACTIONS 11694 [anon_sym_LBRACK];
   ACTIONS 1546 [aux_sym_ppUsesBlock_token1]; ACTIONS 3 [sym__space];
   ACTIONS 5 [sym_ppDirective]; ACTIONS 3 [sym_comment]; ACTIONS 1016 [sym_kDefault;
   sym_kNodefault]; ACTIONS 11641 [sym_kDispId]; ACTIONS 1539 [sym_kGeneric; sym_kOperator];
   ACTIONS 11643 [sym_kPublic]; ACTIONS 1539 [sym_kForward]; ACTIONS 1016 [sym_kStatic;
   sym_kVirtual; sym_kAbstract; sym_kDynamic; sym_kOverride; sym_kOverload; sym_kReintroduce;
   sym_kStdcall; sym_kCdecl; sym_kCppdecl; sym_kPascal; sym_kRegister; sym_kMwpascal];
   ACTIONS 1539 [sym_kExternal]; ACTIONS 11645 [sym_kMessage]; ACTIONS 11647 [sym_kDeprecated];
   ACTIONS 1016 [sym_kExperimental; sym_kPlatform; sym_kUnimplemented; sym_kCvar];
   ACTIONS 11649 [sym_kExport]; ACTIONS 1016 [sym_kFar; sym_kNear; sym_kSafecall; sym_kAssembler;
   sym_kNostackframe; sym_kInterrupt; sym_kNoreturn; sym_kIocheck; sym_kLocal; sym_kHardfloat;
   sym_kSoftfloat; sym_kMs_abi_default; sym_kMs_abi_cdecl; sym_kSaveregisters;
   sym_kSysv_abi_default; sym_kSysv_abi_cdecl; sym_kVectorcall; sym_kVarargs; sym_kWinapi];
   ACTIONS 11651 [sym_kAlias]; ACTIONS 1539 [sym_kClass; sym_kConst; sym_kConstructor;
   sym_kDestructor; sym_kEnd; sym_kExports; sym_kFinalization; sym_kFunction;
   sym_kImplementation; sym_kInitialization]; ACTIONS 1016 [sym_kInline];
   ACTIONS 1539 [sym_kInterface; sym_kLabel; sym_kProcedure; sym_kProperty; sym_kResourcestring;
   sym_kThreadvar; sym_kType; sym_kUses; sym_kVar]].

(** State 1489. *)
Definition ts_parse_table_1489 : parse_row :=
  [STATE 2854 [sym__ppIf]; STATE 2172 [sym__procAttributeNoExt];
   STATE 2187 [sym__procAttributesPp]; STATE 15605 [sym_procAttribute];
   STATE 1532 [aux_sym__declProc_repeat1]; ACTIONS 11697 [anon_sym_LBRACK];
   ACTIONS 1579 [aux_sym_ppUsesBlock_token1]; ACTIONS 3 [sym__space];
   ACTIONS 5 [sym_ppDirective]; ACTIONS 3 [sym_comment]; ACTIONS 1016 [sym_kDefault;
   sym_kNodefault]; ACTIONS 11641 [sym_kDispId]; ACTIONS 1572 [sym_kGeneric; sym_kOperator];
   ACTIONS 11643 [sym_kPublic]; ACTIONS 1572 [sym_kForward]; ACTIONS 1016 [sym_kStatic;
   sym_kVirtual; sym_kAbstract; sym_kDynamic; sym_kOverride; sym_kOverload; sym_kReintroduce;
   sym_kStdcall; sym_kCdecl; sym_kCppdecl; sym_kPascal; sym_kRegister; sym_kMwpascal];
   ACTIONS 1572 [sym_kExternal]; ACTIONS 11645 [sym_kMessage]; ACTIONS 11647 [sym_kDeprecated];
   ACTIONS 1016 [sym_kExperimental; sym_kPlatform; sym_kUnimplemented; sym_kCvar];
   ACTIONS 11649 [sym_kExport]; ACTIONS 1016 [sym_kFar; sym_kNear; sym_kSafecall; sym_kAssembler;
   sym_kNostackframe; sym_kInterrupt; sym_kNoreturn; sym_kIocheck; sym_kLocal; sym_kHardfloat;
   sym_kSoftfloat; sym_kMs_abi_default; sym_kMs_abi_cdecl; sym_kSaveregisters;
   sym_kSysv_abi_default; sym_kSysv_abi_cdecl; sym_kVectorcall; sym_kVarargs; sym_kWinapi];
   ACTIONS 11651 [sym_kAlias]; ACTIONS 1572 [sym_kClass; sym_kConst; sym_kConstructor;
   sym_kDestructor; sym_kEnd; sym_kExports; sym_kFinalization; sym_kFunction;
   sym_kImplementation; sym_kInitialization]; ACTIONS 1016 [sym_kInline];
   ACTIONS 1572 [sym_kInterface; sym_kLabel; sym_kProcedure; sym_kProperty; sym_kResourcestring;
   sym_kThreadvar; sym_kType; sym_kUses; sym_kVar]].

(** State 1490. *)
Definition ts_parse_table_1490 : parse_row :=
  [STATE 2854 [sym__ppIf]; STATE 2172 [sym__procAttributeNoExt];
   STATE 2187 [sym__procAttributesPp]; STATE 15605 [sym_procAttribute];
   STATE 1501 [aux_sym__declProc_repeat1]; ACTIONS 11700 [anon_sym_LBRACK];
   ACTIONS 1624 [aux_sym_ppUsesBlock_token1]; ACTIONS 3 [sym__space];
   ACTIONS 5 [sym_ppDirective]; ACTIONS 3 [sym_comment]; ACTIONS 1016 [sym_kDefault;
   sym_kNodefault]; ACTIONS 11641 [sym_kDispId]; ACTIONS 1617 [sym_kGeneric; sym_kOperator];
   ACTIONS 11643 [sym_kPublic]; ACTIONS 1617 [sym_kForward]; ACTIONS 1016 [sym_kStatic;
   sym_kVirtual; sym_kAbstract; sym_kDynamic; sym_kOverride; sym_kOverload; sym_kReintroduce;
   sym_kStdcall; sym_kCdecl; sym_kCppdecl; sym_kPascal; sym_kRegister; sym_kMwpascal];
   ACTIONS 1617 [sym_kExternal]; ACTIONS 11645 [sym_kMessage]; ACTIONS 11647 [sym_kDeprecated];
   ACTIONS 1016 [sym_kExperimental; sym_kPlatform; sym_kUnimplemented; sym_kCvar];
   ACTIONS 11649 [sym_kExport]; ACTIONS 1016 [sym_kFar; sym_kNear; sym_kSafecall; sym_kAssembler;
   sym_kNostackframe; sym_kInterrupt; sym_kNoreturn; sym_kIocheck; sym_kLocal; sym_kHardfloat;
   sym_kSoftfloat; sym_kMs_abi_default; sym_kMs_abi_cdecl; sym_kSaveregisters;
   sym_kSysv_abi_default; sym_kSysv_abi_cdecl; sym_kVectorcall; sym_kVarargs; sym_kWinapi];
   ACTIONS 11651 [sym_kAlias]; ACTIONS 1617 [sym_kClass; sym_kConst; sym_kConstructor;
   sym_kDestructor; sym_kEnd; sym_kExports; sym_kFinalization; sym_kFunction;
   sym_kImplementation; sym_kInitialization]; ACTIONS 1016 [sym_kInline];
   ACTIONS 1617 [sym_kInterface; sym_kLabel; sym_kProcedure; sym_kProperty; sym_kResourcestring;
   sym_kThreadvar; sym_kType; sym_kUses; sym_kVar]].

(** State 1491. *)
Definition ts_parse_table_1491 : parse_row :=
  [STATE 2854 [sym__ppIf]; STATE 2172 [sym__procAttributeNoExt];
   STATE 2187 [sym__procAttributesPp]; STATE 15605 [sym_procAttribute];
   STATE 1502 [aux_sym__declProc_repeat1]; ACTIONS 11703 [anon_sym_LBRACK];
   ACTIONS 1655 [aux_sym_ppUsesBlock_token1]; ACTIONS 3 [sym__space];
   ACTIONS 5 [sym_ppDirective]; ACTIONS 3 [sym_comment]; ACTIONS 1016 [sym_kDefault;
   sym_kNodefault]; ACTIONS 11641 [sym_kDispId]; ACTIONS 1648 [sym_kGeneric; sym_kOperator];
   ACTIONS 11643 [sym_kPublic]; ACTIONS 1648 [sym_kForward]; ACTIONS 1016 [sym_kStatic;
   sym_kVirtual; sym_kAbstract; sym_kDynamic; sym_kOverride; sym_kOverload; sym_kReintroduce;
   sym_kStdcall; sym_kCdecl; sym_kCppdecl; sym_kPascal; sym_kRegister; sym_kMwpascal];
   ACTIONS 1648 [sym_kExternal]; ACTIONS 11645 [sym_kMessage]; ACTIONS 11647 [sym_kDeprecated];
   ACTIONS 1016 [sym_kExperimental; sym_kPlatform; sym_kUnimplemented; sym_kCvar];
   ACTIONS 11649 [sym_kExport]; ACTIONS 1016 [sym_kFar; sym_kNear; sym_kSafecall; sym_kAssembler;
   sym_kNostackframe; sym_kInterrupt; sym_kNoreturn; sym_kIocheck; sym_kLocal; sym_kHardfloat;
   sym_kSoftfloat; sym_kMs_abi_default; sym_kMs_abi_cdecl; sym_kSaveregisters;
   sym_kSysv_abi_default; sym_kSysv_abi_cdecl; sym_kVectorcall; sym_kVarargs; sym_kWinapi];
   ACTIONS 11651 [sym_kAlias]; ACTIONS 1648 [sym_kClass; sym_kConst; sym_kConstructor;
   sym_kDestructor; sym_kEnd; sym_kExports; sym_kFinalization; sym_kFunction;
   sym_kImplementation; sym_kInitialization]; ACTIONS 1016 [sym_kInline];
   ACTIONS 1648 [sym_kInterface; sym_kLabel; sym_kProcedure; sym_kProperty; sym_kResourcestring;
   sym_kThreadvar; sym_kType; sym_kUses; sym_kVar]].

(** State 1492. *)
Definition ts_parse_table_1492 : parse_row :=
  [STATE 38 [sym__ppIf]; STATE 1492 [sym_ppBlock; sym_declVar]; STATE 5451 [sym_rttiAttributes];
   STATE 1492 [aux_sym_declVars_repeat1]; STATE 5452 [aux_sym_declVar_repeat1];
   STATE 4094 [aux_sym_rttiAttributes_repeat2]; ACTIONS 3695 [anon_sym_LBRACK];
   ACTIONS 3700 [aux_sym_ppUsesBlock_token1]; ACTIONS 3 [sym__space];
   ACTIONS 5 [sym_ppDirective]; ACTIONS 3 [sym_comment]; ACTIONS 11706 [sym_identifier];
   ACTIONS 11709 [sym_kDefault; sym_kNodefault; sym_kDispId]; ACTIONS 3693 [sym_kGeneric];
   ACTIONS 11709 [sym_kOperator; sym_kPublic; sym_kStatic; sym_kVirtual; sym_kAbstract;
   sym_kDynamic; sym_kOverride; sym_kOverload; sym_kReintroduce; sym_kStdcall; sym_kCdecl;
   sym_kCppdecl; sym_kPascal; sym_kRegister; sym_kMwpascal; sym_kMessage; sym_kDeprecated;
   sym_kExperimental; sym_kPlatform; sym_kUnimplemented; sym_kCvar; sym_kExport; sym_kFar;
   sym_kNear; sym_kSafecall; sym_kAssembler; sym_kNostackframe; sym_kInterrupt; sym_kNoreturn;
   sym_kIocheck; sym_kLocal; sym_kHardfloat; sym_kSoftfloat; sym_kMs_abi_default;
   sym_kMs_abi_cdecl; sym_kSaveregisters; sym_kSysv_abi_default; sym_kSysv_abi_cdecl;
   sym_kVectorcall; sym_kVarargs; sym_kWinapi; sym_kAlias]; ACTIONS 3693 [sym_kBegin; sym_kClass;
   sym_kConst; sym_kConstructor; sym_kDestructor; sym_kEnd; sym_kExports; sym_kFinalization;
   sym_kFunction; sym_kImplementation; sym_kInitialization; sym_kInterface; sym_kLabel;
   sym_kProcedure; sym_kResourcestring; sym_kThreadvar; sym_kType; sym_kUses; sym_kVar]].

(** State 1493. *)
Definition ts_parse_table_1493 : parse_row :=
  [STATE 2854 [sym__ppIf]; STATE 2172 [sym__procAttributeNoExt];
   STATE 2187 [sym__procAttributesPp]; STATE 15605 [sym_procAttribute];
   STATE 1539 [aux_sym__declProc_repeat1]; ACTIONS 11712 [anon_sym_LBRACK];
   ACTIONS 1734 [aux_sym_ppUsesBlock_token1]; ACTIONS 3 [sym__space];
   ACTIONS 5 [sym_ppDirective]; ACTIONS 3 [sym_comment]; ACTIONS 1016 [sym_kDefault;
   sym_kNodefault]; ACTIONS 11641 [sym_kDispId]; ACTIONS 1727 [sym_kGeneric; sym_kOperator];
   ACTIONS 11643 [sym_kPublic]; ACTIONS 1727 [sym_kForward]; ACTIONS 1016 [sym_kStatic;
   sym_kVirtual; sym_kAbstract; sym_kDynamic; sym_kOverride; sym_kOverload; sym_kReintroduce;
   sym_kStdcall; sym_kCdecl; sym_kCppdecl; sym_kPascal; sym_kRegister; sym_kMwpascal];
   ACTIONS 1727 [sym_kExternal]; ACTIONS 11645 [sym_kMessage]; ACTIONS 11647 [sym_kDeprecated];
   ACTIONS 1016 [sym_kExperimental; sym_kPlatform; sym_kUnimplemented; sym_kCvar];
   ACTIONS 11649 [sym_kExport]; ACTIONS 1016 [sym_kFar; sym_kNear; sym_kSafecall; sym_kAssembler;
   sym_kNostackframe; sym_kInterrupt; sym_kNoreturn; sym_kIocheck; sym_kLocal; sym_kHardfloat;
   sym_kSoftfloat; sym_kMs_abi_default; sym_kMs_abi_cdecl; sym_kSaveregisters;
   sym_kSysv_abi_default; sym_kSysv_abi_cdecl; sym_kVectorcall; sym_kVarargs; sym_kWinapi];
   ACTIONS 11651 [sym_kAlias]; ACTIONS 1727 [sym_kClass; sym_kConst; sym_kConstructor;
   sym_kDestructor; sym_kEnd; sym_kExports; sym_kFinalization; sym_kFunction;
   sym_kImplementation; sym_kInitialization]; ACTIONS 1016 [sym_kInline];
   ACTIONS 1727 [sym_kInterface; sym_kLabel; sym_kProcedure; sym_kProperty; sym_kResourcestring;
   sym_kThreadvar; sym_kType; sym_kUses; sym_kVar]].

(** State 1494. *)
Definition ts_parse_table_1494 : parse_row :=
  [STATE 2854 [sym__ppIf]; STATE 2172 [sym__procAttributeNoExt];
   STATE 2187 [sym__procAttributesPp]; STATE 15605 [sym_procAttribute];
   STATE 1532 [aux_sym__declProc_repeat1]; ACTIONS 11715 [anon_sym_LBRACK];
   ACTIONS 1765 [aux_sym_ppUsesBlock_token1]; ACTIONS 3 [sym__space];
   ACTIONS 5 [sym_ppDirective]; ACTIONS 3 [sym_comment]; ACTIONS 1016 [sym_kDefault;
   sym_kNodefault]; ACTIONS 11641 [sym_kDispId]; ACTIONS 1758 [sym_kGeneric; sym_kOperator];
   ACTIONS 11643 [sym_kPublic]; ACTIONS 1758 [sym_kForward]; ACTIONS 1016 [sym_kStatic;
   sym_kVirtual; sym_kAbstract; sym_kDynamic; sym_kOverride; sym_kOverload; sym_kReintroduce;
   sym_kStdcall; sym_kCdecl; sym_kCppdecl; sym_kPascal; sym_kRegister; sym_kMwpascal];
   ACTIONS 1758 [sym_kExternal]; ACTIONS 11645 [sym_kMessage]; ACTIONS 11647 [sym_kDeprecated];
   ACTIONS 1016 [sym_kExperimental; sym_kPlatform; sym_kUnimplemented; sym_kCvar];
   ACTIONS 11649 [sym_kExport]; ACTIONS 1016 [sym_kFar; sym_kNear; sym_kSafecall; sym_kAssembler;
   sym_kNostackframe; sym_kInterrupt; sym_kNoreturn; sym_kIocheck; sym_kLocal; sym_kHardfloat;
   sym_kSoftfloat; sym_kMs_abi_default; sym_kMs_abi_cdecl; sym_kSaveregisters;
   sym_kSysv_abi_default; sym_kSysv_abi_cdecl; sym_kVectorcall; sym_kVarargs; sym_kWinapi];
   ACTIONS 11651 [sym_kAlias]; ACTIONS 1758 [sym_kClass; sym_kConst; sym_kConstructor;
   sym_kDestructor; sym_kEnd; sym_kExports; sym_kFinalization; sym_kFunction;
   sym_kImplementation; sym_kInitialization]; ACTIONS 1016 [sym_kInline];
   ACTIONS 1758 [sym_kInterface; sym_kLabel; sym_kProcedure; sym_kProperty; sym_kResourcestring;
   sym_kThreadvar; sym_kType; sym_kUses; sym_kVar]].

(** State 1495. *)
Definition ts_parse_table_1495 : parse_row :=
  [STATE 2854 [sym__ppIf]; STATE 2172 [sym__procAttributeNoExt];
   STATE 2187 [sym__procAttributesPp]; STATE 15605 [sym_procAttribute];
   STATE 1532 [aux_sym__declProc_repeat1]; ACTIONS 11718 [anon_sym_LBRACK];
   ACTIONS 1798 [aux_sym_ppUsesBlock_token1]; ACTIONS 3 [sym__space];
   ACTIONS 5 [sym_ppDirective]; ACTIONS 3 [sym_comment]; ACTIONS 1016 [sym_kDefault;
   sym_kNodefault]; ACTIONS 11641 [sym_kDispId]; ACTIONS 1791 [sym_kGeneric; sym_kOperator];
   ACTIONS 11643 [sym_kPublic]; ACTIONS 1791 [sym_kForward]; ACTIONS 1016 [sym_kStatic;
   sym_kVirtual; sym_kAbstract; sym_kDynamic; sym_kOverride; sym_kOverload; sym_kReintroduce;
   sym_kStdcall; sym_kCdecl; sym_kCppdecl; sym_kPascal; sym_kRegister; sym_kMwpascal];
   ACTIONS 1791 [sym_kExternal]; ACTIONS 11645 [sym_kMessage]; ACTIONS 11647 [sym_kDeprecated];
   ACTIONS 1016 [sym_kExperimental; sym_kPlatform; sym_kUnimplemented; sym_kCvar];
   ACTIONS 11649 [sym_kExport]; ACTIONS 1016 [sym_kFar; sym_kNear; sym_kSafecall; sym_kAssembler;
   sym_kNostackframe; sym_kInterrupt; sym_kNoreturn; sym_kIocheck; sym_kLocal; sym_kHardfloat;
   sym_kSoftfloat; sym_kMs_abi_default; sym_kMs_abi_cdecl; sym_kSaveregisters;
   sym_kSysv_abi_default; sym_kSysv_abi_cdecl; sym_kVectorcall; sym_kVarargs; sym_kWinapi];
   ACTIONS 11651 [sym_kAlias]; ACTIONS 1791 [sym_kClass; sym_kConst; sym_kConstructor;
   sym_kDestructor; sym_kEnd; sym_kExports; sym_kFinalization; sym_kFunction;
   sym_kImplementation; sym_kInitialization]; ACTIONS 1016 [sym_kInline];
   ACTIONS 1791 [sym_kInterface; sym_kLabel; sym_kProcedure; sym_kProperty; sym_kResourcestring;
   sym_kThreadvar; sym_kType; sym_kUses; sym_kVar]].

(** State 1496. *)
Definition ts_parse_table_1496 : parse_row :=
  [STATE 2854 [sym__ppIf]; STATE 2172 [sym__procAttributeNoExt];
   STATE 2187 [sym__procAttributesPp]; STATE 15605 [sym_procAttribute];
   STATE 1507 [aux_sym__declProc_repeat1]; ACTIONS 11721 [anon_sym_LBRACK];
   ACTIONS 1843 [aux_sym_ppUsesBlock_token1]; ACTIONS 3 [sym__space];
   ACTIONS 5 [sym_ppDirective]; ACTIONS 3 [sym_comment]; ACTIONS 1016 [sym_kDefault;
   sym_kNodefault]; ACTIONS 11641 [sym_kDispId]; ACTIONS 1836 [sym_kGeneric; sym_kOperator];
   ACTIONS 11643 [sym_kPublic]; ACTIONS 1836 [sym_kForward]; ACTIONS 1016 [sym_kStatic;
   sym_kVirtual; sym_kAbstract; sym_kDynamic; sym_kOverride; sym_kOverload; sym_kReintroduce;
   sym_kStdcall; sym_kCdecl; sym_kCppdecl; sym_kPascal; sym_kRegister; sym_kMwpascal];
   ACTIONS 1836 [sym_kExternal]; ACTIONS 11645 [sym_kMessage]; ACTIONS 11647 [sym_kDeprecated];
   ACTIONS 1016 [sym_kExperimental; sym_kPlatform; sym_kUnimplemented; sym_kCvar];
   ACTIONS 11649 [sym_kExport]; ACTIONS 1016 [sym_kFar; sym_kNear; sym_kSafecall; sym_kAssembler;
   sym_kNostackframe; sym_kInterrupt; sym_kNoreturn; sym_kIocheck; sym_kLocal; sym_kHardfloat;
   sym_kSoftfloat; sym_kMs_abi_default; sym_kMs_abi_cdecl; sym_kSaveregisters;
   sym_kSysv_abi_default; sym_kSysv_abi_cdecl; sym_kVectorcall; sym_kVarargs; sym_kWinapi];
   ACTIONS 11651 [sym_kAlias]; ACTIONS 1836 [sym_kClass; sym_kConst; sym_kConstructor;
   sym_kDestructor; sym_kEnd; sym_kExports; sym_kFinalization; sym_kFunction;
   sym_kImplementation; sym_kInitialization]; ACTIONS 1016 [sym_kInline];
   ACTIONS 1836 [sym_kInterface; sym_kLabel; sym_kProcedure; sym_kProperty; sym_kResourcestring;
   sym_kThreadvar; sym_kType; sym_kUses; sym_kVar]].

(** State 1497. *)
Definition ts_parse_table_1497 : parse_row :=
  [STATE 2854 [sym__ppIf]; STATE 2172 [sym__procAttributeNoExt];
   STATE 2187 [sym__procAttributesPp]; STATE 15605 [sym_procAttribute];
   STATE 1532 [aux_sym__declProc_repeat1]; ACTIONS 11724 [anon_sym_LBRACK];
   ACTIONS 1890 [aux_sym_ppUsesBlock_token1]; ACTIONS 3 [sym__space];
   ACTIONS 5 [sym_ppDirective]; ACTIONS 3 [sym_comment]; ACTIONS 1016 [sym_kDefault;
   sym_kNodefault]; ACTIONS 11641 [sym_kDispId]; ACTIONS 1883 [sym_kGeneric; sym_kOperator];
   ACTIONS 11643 [sym_kPublic]; ACTIONS 1883 [sym_kForward]; ACTIONS 1016 [sym_kStatic;
   sym_kVirtual; sym_kAbstract; sym_kDynamic; sym_kOverride; sym_kOverload; sym_kReintroduce;
   sym_kStdcall; sym_kCdecl; sym_kCppdecl; sym_kPascal; sym_kRegister; sym_kMwpascal];
   ACTIONS 1883 [sym_kExternal]; ACTIONS 11645 [sym_kMessage]; ACTIONS 11647 [sym_kDeprecated];
   ACTIONS 1016 [sym_kExperimental; sym_kPlatform; sym_kUnimplemented; sym_kCvar];
   ACTIONS 11649 [sym_kExport]; ACTIONS 1016 [sym_kFar; sym_kNear; sym_kSafecall; sym_kAssembler;
   sym_kNostackframe; sym_kInterrupt; sym_kNoreturn; sym_kIocheck; sym_kLocal; sym_kHardfloat;
   sym_kSoftfloat; sym_kMs_abi_default; sym_kMs_abi_cdecl; sym_kSaveregisters;
   sym_kSysv_abi_default; sym_kSysv_abi_cdecl; sym_kVectorcall; sym_kVarargs; sym_kWinapi];
   ACTIONS 11651 [sym_kAlias]; ACTIONS 1883 [sym_kClass; sym_kConst; sym_kConstructor;
   sym_kDestructor; sym_kEnd; sym_kExports; sym_kFinalization; sym_kFunction;
   sym_kImplementation; sym_kInitialization]; ACTIONS 1016 [sym_kInline];
   ACTIONS 1883 [sym_kInterface; sym_kLabel; sym_kProcedure; sym_kProperty; sym_kResourcestring;
   sym_kThreadvar; sym_kType; sym_kUses; sym_kVar]].

(** State 1498. *)
Definition ts_parse_table_1498 : parse_row :=
  [STATE 2854 [sym__ppIf]; STATE 2172 [sym__procAttributeNoExt];
   STATE 2187 [sym__procAttributesPp]; STATE 15605 [sym_procAttribute];
   STATE 1509 [aux_sym__declProc_repeat1]; ACTIONS 11727 [anon_sym_LBRACK];
   ACTIONS 1921 [aux_sym_ppUsesBlock_token1]; ACTIONS 3 [sym__space];
   ACTIONS 5 [sym_ppDirective]; ACTIONS 3 [sym_comment]; ACTIONS 1016 [sym_kDefault;
   sym_kNodefault]; ACTIONS 11641 [sym_kDispId]; ACTIONS 1914 [sym_kGeneric; sym_kOperator];
   ACTIONS 11643 [sym_kPublic]; ACTIONS 1914 [sym_kForward]; ACTIONS 1016 [sym_kStatic;
   sym_kVirtual; sym_kAbstract; sym_kDynamic; sym_kOverride; sym_kOverload; sym_kReintroduce;
   sym_kStdcall; sym_kCdecl; sym_kCppdecl; sym_kPascal; sym_kRegister; sym_kMwpascal];
   ACTIONS 1914 [sym_kExternal]; ACTIONS 11645 [sym_kMessage]; ACTIONS 11647 [sym_kDeprecated];
   ACTIONS 1016 [sym_kExperimental; sym_kPlatform; sym_kUnimplemented; sym_kCvar];
   ACTIONS 11649 [sym_kExport]; ACTIONS 1016 [sym_kFar; sym_kNear; sym_kSafecall; sym_kAssembler;
   sym_kNostackframe; sym_kInterrupt; sym_kNoreturn; sym_kIocheck; sym_kLocal; sym_kHardfloat;
   sym_kSoftfloat; sym_kMs_abi_default; sym_kMs_abi_cdecl; sym_kSaveregisters;
   sym_kSysv_abi_default; sym_kSysv_abi_cdecl; sym_kVectorcall; sym_kVarargs; sym_kWinapi];
   ACTIONS 11651 [sym_kAlias]; ACTIONS 1914 [sym_kClass; sym_kConst; sym_kConstructor;
   sym_kDestructor; sym_kEnd; sym_kExports; sym_kFinalization; sym_kFunction;
   sym_kImplementation; sym_kInitialization]; ACTIONS 1016 [sym_kInline];
   ACTIONS 1914 [sym_kInterface; sym_kLabel; sym_kProcedure; sym_kProperty; sym_kResourcestring;
   sym_kThreadvar; sym_kType; sym_kUses; sym_kVar]].

(** State 1499. *)
Definition ts_parse_table_1499 : parse_row :=
  [STATE 2854 [sym__ppIf]; STATE 2172 [sym__procAttributeNoExt];
   STATE 2187 [sym__procAttributesPp]; STATE 15605 [sym_procAttribute];
   STATE 1510 [aux_sym__declProc_repeat1]; ACTIONS 11730 [anon_sym_LBRACK];
   ACTIONS 1954 [aux_sym_ppUsesBlock_token1]; ACTIONS 3 [sym__space];
   ACTIONS 5 [sym_ppDirective]; ACTIONS 3 [sym_comment]; ACTIONS 1016 [sym_kDefault;
   sym_kNodefault]; ACTIONS 11641 [sym_kDispId]; ACTIONS 1947 [sym_kGeneric; sym_kOperator];
   ACTIONS 11643 [sym_kPublic]; ACTIONS 1947 [sym_kForward]; ACTIONS 1016 [sym_kStatic;
   sym_kVirtual; sym_kAbstract; sym_kDynamic; sym_kOverride; sym_kOverload; sym_kReintroduce;
   sym_kStdcall; sym_kCdecl; sym_kCppdecl; sym_kPascal; sym_kRegister; sym_kMwpascal];
   ACTIONS 1947 [sym_kExternal]; ACTIONS 11645 [sym_kMessage]; ACTIONS 11647 [sym_kDeprecated];
   ACTIONS 1016 [sym_kExperimental; sym_kPlatform; sym_kUnimplemented; sym_kCvar];
   ACTIONS 11649 [sym_kExport]; ACTIONS 1016 [sym_kFar; sym_kNear; sym_kSafecall; sym_kAssembler;
   sym_kNostackframe; sym_kInterrupt; sym_kNoreturn; sym_kIocheck; sym_kLocal; sym_kHardfloat;
   sym_kSoftfloat; sym_kMs_abi_default; sym_kMs_abi_cdecl; sym_kSaveregisters;
   sym_kSysv_abi_default; sym_kSysv_abi_cdecl; sym_kVectorcall; sym_kVarargs; sym_kWinapi];
   ACTIONS 11651 [sym_kAlias]; ACTIONS 1947 [sym_kClass; sym_kConst; sym_kConstructor;
   sym_kDestructor; sym_kEnd; sym_kExports; sym_kFinalization; sym_kFunction;
   sym_kImplementation; sym_kInitialization]; ACTIONS 1016 [sym_kInline];
   ACTIONS 1947 [sym_kInterface; sym_kLabel; sym_kProcedure; sym_kProperty; sym_kResourcestring;
   sym_kThreadvar; sym_kType; sym_kUses; sym_kVar]].

(** State 1500. *)
Definition ts_parse_table_1500 : parse_row :=
  [STATE 2854 [sym__ppIf]; STATE 2172 [sym__procAttributeNoExt];
   STATE 2187 [sym__procAttributesPp]; STATE 15605 [sym_procAttribute];
   STATE 1512 [aux_sym__declProc_repeat1]; ACTIONS 11733 [anon_sym_LBRACK];
   ACTIONS 1999 [aux_sym_ppUsesBlock_token1]; ACTIONS 3 [sym__space];
   ACTIONS 5 [sym_ppDirective]; ACTIONS 3 [sym_comment]; ACTIONS 1016 [sym_kDefault;
   sym_kNodefault]; ACTIONS 11641 [sym_kDispId]; ACTIONS 1992 [sym_kGeneric; sym_kOperator];
   ACTIONS 11643 [sym_kPublic]; ACTIONS 1992 [sym_kForward]; ACTIONS 1016 [sym_kStatic;
   sym_kVirtual; sym_kAbstract; sym_kDynamic; sym_kOverride; sym_kOverload; sym_kReintroduce;
   sym_kStdcall; sym_kCdecl; sym_kCppdecl; sym_kPascal; sym_kRegister; sym_kMwpascal];
   ACTIONS 1992 [sym_kExternal]; ACTIONS 11645 [sym_kMessage]; ACTIONS 11647 [sym_kDeprecated];
   ACTIONS 1016 [sym_kExperimental; sym_kPlatform; sym_kUnimplemented; sym_kCvar];
   ACTIONS 11649 [sym_kExport]; ACTIONS 1016 [sym_kFar; sym_kNear; sym_kSafecall; sym_kAssembler;
   sym_kNostackframe; sym_kInterrupt; sym_kNoreturn; sym_kIocheck; sym_kLocal; sym_kHardfloat;
   sym_kSoftfloat; sym_kMs_abi_default; sym_kMs_abi_cdecl; sym_kSaveregisters;
   sym_kSysv_abi_default; sym_kSysv_abi_cdecl; sym_kVectorcall; sym_kVarargs; sym_kWinapi];
   ACTIONS 11651 [sym_kAlias]; ACTIONS 1992 [sym_kClass; sym_kConst; sym_kConstructor;
   sym_kDestructor; sym_kEnd; sym_kExports; sym_kFinalization; sym_kFunction;
   sym_kImplementation; sym_kInitialization]; ACTIONS 1016 [sym_kInline];
   ACTIONS 1992 [sym_kInterface; sym_kLabel; sym_kProcedure; sym_kProperty; sym_kResourcestring;
   sym_kThreadvar; sym_kType; sym_kUses; sym_kVar]].

(** State 1501. *)
Definition ts_parse_table_1501 : parse_row :=
  [STATE 2854 [sym__ppIf]; STATE 2172 [sym__procAttributeNoExt];
   STATE 2187 [sym__procAttributesPp]; STATE 15605 [sym_procAttribute];
   STATE 1532 [aux_sym__declProc_repeat1]; ACTIONS 11736 [anon_sym_LBRACK];
   ACTIONS 2030 [aux_sym_ppUsesBlock_token1]; ACTIONS 3 [sym__space];
   ACTIONS 5 [sym_ppDirective]; ACTIONS 3 [sym_comment]; ACTIONS 1016 [sym_kDefault;
   sym_kNodefault]; ACTIONS 11641 [sym_kDispId]; ACTIONS 2023 [sym_kGeneric; sym_kOperator];
   ACTIONS 11643 [sym_kPublic]; ACTIONS 2023 [sym_kForward]; ACTIONS 1016 [sym_kStatic;
   sym_kVirtual; sym_kAbstract; sym_kDynamic; sym_kOverride; sym_kOverload; sym_kReintroduce;
   sym_kStdcall; sym_kCdecl; sym_kCppdecl; sym_kPascal; sym_kRegister; sym_kMwpascal];
   ACTIONS 2023 [sym_kExternal]; ACTIONS 11645 [sym_kMessage]; ACTIONS 11647 [sym_kDeprecated];
   ACTIONS 1016 [sym_kExperimental; sym_kPlatform; sym_kUnimplemented; sym_kCvar];
   ACTIONS 11649 [sym_kExport]; ACTIONS 1016 [sym_kFar; sym_kNear; sym_kSafecall; sym_kAssembler;
   sym_kNostackframe; sym_kInterrupt; sym_kNoreturn; sym_kIocheck; sym_kLocal; sym_kHardfloat;
   sym_kSoftfloat; sym_kMs_abi_default; sym_kMs_abi_cdecl; sym_kSaveregisters;
   sym_kSysv_abi_default; sym_kSysv_abi_cdecl; sym_kVectorcall; sym_kVarargs; sym_kWinapi];
   ACTIONS 11651 [sym_kAlias]; ACTIONS 2023 [sym_kClass; sym_kConst; sym_kConstructor;
   sym_kDestructor; sym_kEnd; sym_kExports; sym_kFinalization; sym_kFunction;
   sym_kImplementation; sym_kInitialization]; ACTIONS 1016 [sym_kInline];
   ACTIONS 2023 [sym_kInterface; sym_kLabel; sym_kProcedure; sym_kProperty; sym_kResourcestring;
   sym_kThreadvar; sym_kType; sym_kUses; sym_kVar]].

(** State 1502. *)
Definition ts_parse_table_1502 : parse_row :=
  [STATE 2854 [sym__ppIf]; STATE 2172 [sym__procAttributeNoExt];
   STATE 2187 [sym__procAttributesPp]; STATE 15605 [sym_procAttribute];
   STATE 1532 [aux_sym__declProc_repeat1]; ACTIONS 11739 [anon_sym_LBRACK];
   ACTIONS 2063 [aux_sym_ppUsesBlock_token1]; ACTIONS 3 [sym__space];
   ACTIONS 5 [sym_ppDirective]; ACTIONS 3 [sym_comment]; ACTIONS 1016 [sym_kDefault;
   sym_kNodefault]; ACTIONS 11641 [sym_kDispId]; ACTIONS 2056 [sym_kGeneric; sym_kOperator];
   ACTIONS 11643 [sym_kPublic]; ACTIONS 2056 [sym_kForward]; ACTIONS 1016 [sym_kStatic;
   sym_kVirtual; sym_kAbstract; sym_kDynamic; sym_kOverride; sym_kOverload; sym_kReintroduce;
   sym_kStdcall; sym_kCdecl; sym_kCppdecl; sym_kPascal; sym_kRegister; sym_kMwpascal];
   ACTIONS 2056 [sym_kExternal]; ACTIONS 11645 [sym_kMessage]; ACTIONS 11647 [sym_kDeprecated];
   ACTIONS 1016 [sym_kExperimental; sym_kPlatform; sym_kUnimplemented; sym_kCvar];
   ACTIONS 11649 [sym_kExport]; ACTIONS 1016 [sym_kFar; sym_kNear; sym_kSafecall; sym_kAssembler;
   sym_kNostackframe; sym_kInterrupt; sym_kNoreturn; sym_kIocheck; sym_kLocal; sym_kHardfloat;
   sym_kSoftfloat; sym_kMs_abi_default; sym_kMs_abi_cdecl; sym_kSaveregisters;
   sym_kSysv_abi_default; sym_kSysv_abi_cdecl; sym_kVectorcall; sym_kVarargs; sym_kWinapi];
   ACTIONS 11651 [sym_kAlias]; ACTIONS 2056 [sym_kClass; sym_kConst; sym_kConstructor;
   sym_kDestructor; sym_kEnd; sym_kExports; sym_kFinalization; sym_kFunction;
   sym_kImplementation; sym_kInitialization]; ACTIONS 1016 [sym_kInline];
   ACTIONS 2056 [sym_kInterface; sym_kLabel; sym_kProcedure; sym_kProperty; sym_kResourcestring;
   sym_kThreadvar; sym_kType; sym_kUses; sym_kVar]].

(** State 1503. *)
Definition ts_parse_table_1503 : parse_row :=
  [STATE 2854 [sym__ppIf]; STATE 2172 [sym__procAttributeNoExt];
   STATE 2187 [sym__procAttributesPp]; STATE 15605 [sym_procAttribute];
   STATE 1515 [aux_sym__declProc_repeat1]; ACTIONS 11742 [anon_sym_LBRACK];
   ACTIONS 2108 [aux_sym_ppUsesBlock_token1]; ACTIONS 3 [sym__space];
   ACTIONS 5 [sym_ppDirective]; ACTIONS 3 [sym_comment]; ACTIONS 1016 [sym_kDefault;
   sym_kNodefault]; ACTIONS 11641 [sym_kDispId]; ACTIONS 2101 [sym_kGeneric; sym_kOperator];
   ACTIONS 11643 [sym_kPublic]; ACTIONS 2101 [sym_kForward]; ACTIONS 1016 [sym_kStatic;
   sym_kVirtual; sym_kAbstract; sym_kDynamic; sym_kOverride; sym_kOverload; sym_kReintroduce;
   sym_kStdcall; sym_kCdecl; sym_kCppdecl; sym_kPascal; sym_kRegister; sym_kMwpascal];
   ACTIONS 2101 [sym_kExternal]; ACTIONS 11645 [sym_kMessage]; ACTIONS 11647 [sym_kDeprecated];
   ACTIONS 1016 [sym_kExperimental; sym_kPlatform; sym_kUnimplemented; sym_kCvar];
   ACTIONS 11649 [sym_kExport]; ACTIONS 1016 [sym_kFar; sym_kNear; sym_kSafecall; sym_kAssembler;
   sym_kNostackframe; sym_kInterrupt; sym_kNoreturn; sym_kIocheck; sym_kLocal; sym_kHardfloat;
   sym_kSoftfloat; sym_kMs_abi_default; sym_kMs_abi_cdecl; sym_kSaveregisters;
   sym_kSysv_abi_default; sym_kSysv_abi_cdecl; sym_kVectorcall; sym_kVarargs; sym_kWinapi];
   ACTIONS 11651 [sym_kAlias]; ACTIONS 2101 [sym_kClass; sym_kConst; sym_kConstructor;
   sym_kDestructor; sym_kEnd; sym_kExports; sym_kFinalization; sym_kFunction;
   sym_kImplementation; sym_kInitialization]; ACTIONS 1016 [sym_kInline];
   ACTIONS 2101 [sym_kInterface; sym_kLabel; sym_kProcedure; sym_kProperty; sym_kResourcestring;
   sym_kThreadvar; sym_kType; sym_kUses; sym_kVar]].

(** State 1504. *)
Definition ts_parse_table_1504 : parse_row :=
  [STATE 42 [sym__ppIf]; STATE 1479 [sym_ppBlock; sym_declVar]; STATE 5457 [sym_rttiAttributes];
   STATE 1479 [aux_sym_declVars_repeat1]; STATE 5458 [aux_sym_declVar_repeat1];
   STATE 4094 [aux_sym_rttiAttributes_repeat2]; ACTIONS 3633 [anon_sym_LBRACK];
   ACTIONS 3638 [aux_sym_ppUsesBlock_token1]; ACTIONS 3 [sym__space];
   ACTIONS 5 [sym_ppDirective]; ACTIONS 3 [sym_comment]; ACTIONS 11653 [sym_identifier];
   ACTIONS 11655 [sym_kDefault; sym_kNodefault; sym_kDispId]; ACTIONS 3631 [sym_kGeneric];
   ACTIONS 11745 [sym_kOperator]; ACTIONS 11655 [sym_kPublic; sym_kStatic; sym_kVirtual;
   sym_kAbstract; sym_kDynamic; sym_kOverride; sym_kOverload; sym_kReintroduce; sym_kStdcall;
   sym_kCdecl; sym_kCppdecl; sym_kPascal; sym_kRegister; sym_kMwpascal; sym_kMessage;
   sym_kDeprecated; sym_kExperimental; sym_kPlatform; sym_kUnimplemented; sym_kCvar; sym_kExport;
   sym_kFar; sym_kNear; sym_kSafecall; sym_kAssembler; sym_kNostackframe; sym_kInterrupt;
   sym_kNoreturn; sym_kIocheck; sym_kLocal; sym_kHardfloat; sym_kSoftfloat; sym_kMs_abi_default;
   sym_kMs_abi_cdecl; sym_kSaveregisters; sym_kSysv_abi_default; sym_kSysv_abi_cdecl;
   sym_kVectorcall; sym_kVarargs; sym_kWinapi; sym_kAlias]; ACTIONS 3631 [sym_kClass; sym_kConst;
   sym_kConstructor; sym_kDestructor; sym_kEnd; sym_kExports; sym_kFinalization; sym_kFunction;
   sym_kImplementation; sym_kInitialization; sym_kInterface; sym_kLabel; sym_kProcedure;
   sym_kProperty; sym_kResourcestring; sym_kThreadvar; sym_kType; sym_kUses; sym_kVar]].

(** State 1505. *)
Definition ts_parse_table_1505 : parse_row :=
  [STATE 2854 [sym__ppIf]; STATE 2172 [sym__procAttributeNoExt];
   STATE 2187 [sym__procAttributesPp]; STATE 15605 [sym_procAttribute];
   STATE 1516 [aux_sym__declProc_repeat1]; ACTIONS 11748 [anon_sym_LBRACK];
   ACTIONS 2325 [aux_sym_ppUsesBlock_token1]; ACTIONS 3 [sym__space];
   ACTIONS 5 [sym_ppDirective]; ACTIONS 3 [sym_comment]; ACTIONS 1016 [sym_kDefault;
   sym_kNodefault]; ACTIONS 11641 [sym_kDispId]; ACTIONS 2318 [sym_kGeneric; sym_kOperator];
   ACTIONS 11643 [sym_kPublic]; ACTIONS 2318 [sym_kForward]; ACTIONS 1016 [sym_kStatic;
   sym_kVirtual; sym_kAbstract; sym_kDynamic; sym_kOverride; sym_kOverload; sym_kReintroduce;
   sym_kStdcall; sym_kCdecl; sym_kCppdecl; sym_kPascal; sym_kRegister; sym_kMwpascal];
   ACTIONS 2318 [sym_kExternal]; ACTIONS 11645 [sym_kMessage]; ACTIONS 11647 [sym_kDeprecated];
   ACTIONS 1016 [sym_kExperimental; sym_kPlatform; sym_kUnimplemented; sym_kCvar];
   ACTIONS 11649 [sym_kExport]; ACTIONS 1016 [sym_kFar; sym_kNear; sym_kSafecall; sym_kAssembler;
   sym_kNostackframe; sym_kInterrupt; sym_kNoreturn; sym_kIocheck; sym_kLocal; sym_kHardfloat;
   sym_kSoftfloat; sym_kMs_abi_default; sym_kMs_abi_cdecl; sym_kSaveregisters;
   sym_kSysv_abi_default; sym_kSysv_abi_cdecl; sym_kVectorcall; sym_kVarargs; sym_kWinapi];
   ACTIONS 11651 [sym_kAlias]; ACTIONS 2318 [sym_kClass; sym_kConst; sym_kConstructor;
   sym_kDestructor; sym_kEnd; sym_kExports; sym_kFinalization; sym_kFunction;
   sym_kImplementation; sym_kInitialization]; ACTIONS 1016 [sym_kInline];
   ACTIONS 2318 [sym_kInterface; sym_kLabel; sym_kProcedure; sym_kProperty; sym_kResourcestring;
   sym_kThreadvar; sym_kType; sym_kUses; sym_kVar]].

(** State 1506. *)
Definition ts_parse_table_1506 : parse_row :=
  [STATE 2854 [sym__ppIf]; STATE 2172 [sym__procAttributeNoExt];
   STATE 2187 [sym__procAttributesPp]; STATE 15605 [sym_procAttribute];
   STATE 1517 [aux_sym__declProc_repeat1]; ACTIONS 11751 [anon_sym_LBRACK];
   ACTIONS 2358 [aux_sym_ppUsesBlock_token1]; ACTIONS 3 [sym__space];
   ACTIONS 5 [sym_ppDirective]; ACTIONS 3 [sym_comment]; ACTIONS 1016 [sym_kDefault;
   sym_kNodefault]; ACTIONS 11641 [sym_kDispId]; ACTIONS 2351 [sym_kGeneric; sym_kOperator];
   ACTIONS 11643 [sym_kPublic]; ACTIONS 2351 [sym_kForward]; ACTIONS 1016 [sym_kStatic;
   sym_kVirtual; sym_kAbstract; sym_kDynamic; sym_kOverride; sym_kOverload; sym_kReintroduce;
   sym_kStdcall; sym_kCdecl; sym_kCppdecl; sym_kPascal; sym_kRegister; sym_kMwpascal];
   ACTIONS 2351 [sym_kExternal]; ACTIONS 11645 [sym_kMessage]; ACTIONS 11647 [sym_kDeprecated];
   ACTIONS 1016 [sym_kExperimental; sym_kPlatform; sym_kUnimplemented; sym_kCvar];
   ACTIONS 11649 [sym_kExport]; ACTIONS 1016 [sym_kFar; sym_kNear; sym_kSafecall; sym_kAssembler;
   sym_kNostackframe; sym_kInterrupt; sym_kNoreturn; sym_kIocheck; sym_kLocal; sym_kHardfloat;
   sym_kSoftfloat; sym_kMs_abi_default; sym_kMs_abi_cdecl; sym_kSaveregisters;
   sym_kSysv_abi_default; sym_kSysv_abi_cdecl; sym_kVectorcall; sym_kVarargs; sym_kWinapi];
   ACTIONS 11651 [sym_kAlias]; ACTIONS 2351 [sym_kClass; sym_kConst; sym_kConstructor;
   sym_kDestructor; sym_kEnd; sym_kExports; sym_kFinalization; sym_kFunction;
   sym_kImplementation; sym_kInitialization]; ACTIONS 1016 [sym_kInline];
   ACTIONS 2351 [sym_kInterface; sym_kLabel; sym_kProcedure; sym_kProperty; sym_kResourcestring;
   sym_kThreadvar; sym_kType; sym_kUses; sym_kVar]].

(** State 1507. *)
Definition ts_parse_table_1507 : parse_row :=
  [STATE 2854 [sym__ppIf]; STATE 2172 [sym__procAttributeNoExt];
   STATE 2187 [sym__procAttributesPp]; STATE 15605 [sym_procAttribute];
   STATE 1532 [aux_sym__declProc_repeat1]; ACTIONS 11754 [anon_sym_LBRACK];
   ACTIONS 2403 [aux_sym_ppUsesBlock_token1]; ACTIONS 3 [sym__space];
   ACTIONS 5 [sym_ppDirective]; ACTIONS 3 [sym_comment]; ACTIONS 1016 [sym_kDefault;
   sym_kNodefault]; ACTIONS 11641 [sym_kDispId]; ACTIONS 2396 [sym_kGeneric; sym_kOperator];
   ACTIONS 11643 [sym_kPublic]; ACTIONS 2396 [sym_kForward]; ACTIONS 1016 [sym_kStatic;
   sym_kVirtual; sym_kAbstract; sym_kDynamic; sym_kOverride; sym_kOverload; sym_kReintroduce;
   sym_kStdcall; sym_kCdecl; sym_kCppdecl; sym_kPascal; sym_kRegister; sym_kMwpascal];
   ACTIONS 2396 [sym_kExternal]; ACTIONS 11645 [sym_kMessage]; ACTIONS 11647 [sym_kDeprecated];
   ACTIONS 1016 [sym_kExperimental; sym_kPlatform; sym_kUnimplemented; sym_kCvar];
   ACTIONS 11649 [sym_kExport]; ACTIONS 1016 [sym_kFar; sym_kNear; sym_kSafecall; sym_kAssembler;
   sym_kNostackframe; sym_kInterrupt; sym_kNoreturn; sym_kIocheck; sym_kLocal; sym_kHardfloat;
   sym_kSoftfloat; sym_kMs_abi_default; sym_kMs_abi_cdecl; sym_kSaveregisters;
   sym_kSysv_abi_default; sym_kSysv_abi_cdecl; sym_kVectorcall; sym_kVarargs; sym_kWinapi];
   ACTIONS 11651 [sym_kAlias]; ACTIONS 2396 [sym_kClass; sym_kConst; sym_kConstructor;
   sym_kDestructor; sym_kEnd; sym_kExports; sym_kFinalization; sym_kFunction;
   sym_kImplementation; sym_kInitialization]; ACTIONS 1016 [sym_kInline];
   ACTIONS 2396 [sym_kInterface; sym_kLabel; sym_kProcedure; sym_kProperty; sym_kResourcestring;
   sym_kThreadvar; sym_kType; sym_kUses; sym_kVar]].

(** State 1508. *)
Definition ts_parse_table_1508 : parse_row :=
  [STATE 2854 [sym__ppIf]; STATE 2172 [sym__procAttributeNoExt];
   STATE 2187 [sym__procAttributesPp]; STATE 15605 [sym_procAttribute];
   STATE 1519 [aux_sym__declProc_repeat1]; ACTIONS 11757 [anon_sym_LBRACK];
   ACTIONS 2486 [aux_sym_ppUsesBlock_token1]; ACTIONS 3 [sym__space];
   ACTIONS 5 [sym_ppDirective]; ACTIONS 3 [sym_comment]; ACTIONS 1016 [sym_kDefault;
   sym_kNodefault]; ACTIONS 11641 [sym_kDispId]; ACTIONS 2479 [sym_kGeneric; sym_kOperator];
   ACTIONS 11643 [sym_kPublic]; ACTIONS 2479 [sym_kForward]; ACTIONS 1016 [sym_kStatic;
   sym_kVirtual; sym_kAbstract; sym_kDynamic; sym_kOverride; sym_kOverload; sym_kReintroduce;
   sym_kStdcall; sym_kCdecl; sym_kCppdecl; sym_kPascal; sym_kRegister; sym_kMwpascal];
   ACTIONS 2479 [sym_kExternal]; ACTIONS 11645 [sym_kMessage]; ACTIONS 11647 [sym_kDeprecated];
   ACTIONS 1016 [sym_kExperimental; sym_kPlatform; sym_kUnimplemented; sym_kCvar];
   ACTIONS 11649 [sym_kExport]; ACTIONS 1016 [sym_kFar; sym_kNear; sym_kSafecall; sym_kAssembler;
   sym_kNostackframe; sym_kInterrupt; sym_kNoreturn; sym_kIocheck; sym_kLocal; sym_kHardfloat;
   sym_kSoftfloat; sym_kMs_abi_default; sym_kMs_abi_cdecl; sym_kSaveregisters;
   sym_kSysv_abi_default; sym_kSysv_abi_cdecl; sym_kVectorcall; sym_kVarargs; sym_kWinapi];
   ACTIONS 11651 [sym_kAlias]; ACTIONS 2479 [sym_kClass; sym_kConst; sym_kConstructor;
   sym_kDestructor; sym_kEnd; sym_kExports; sym_kFinalization; sym_kFunction;
   sym_kImplementation; sym_kInitialization]; ACTIONS 1016 [sym_kInline];
   ACTIONS 2479 [sym_kInterface; sym_kLabel; sym_kProcedure; sym_kProperty; sym_kResourcestring;
   sym_kThreadvar; sym_kType; sym_kUses; sym_kVar]].

(** State 1509. *)
Definition ts_parse_table_1509 : parse_row :=
  [STATE 2854 [sym__ppIf]; STATE 2172 [sym__procAttributeNoExt];
   STATE 2187 [sym__procAttributesPp]; STATE 15605 [sym_procAttribute];
   STATE 1532 [aux_sym__declProc_repeat1]; ACTIONS 11760 [anon_sym_LBRACK];
   ACTIONS 2517 [aux_sym_ppUsesBlock_token1]; ACTIONS 3 [sym__space];
   ACTIONS 5 [sym_ppDirective]; ACTIONS 3 [sym_comment]; ACTIONS 1016 [sym_kDefault;
   sym_kNodefault]; ACTIONS 11641 [sym_kDispId]; ACTIONS 2510 [sym_kGeneric; sym_kOperator];
   ACTIONS 11643 [sym_kPublic]; ACTIONS 2510 [sym_kForward]; ACTIONS 1016 [sym_kStatic;
   sym_kVirtual; sym_kAbstract; sym_kDynamic; sym_kOverride; sym_kOverload; sym_kReintroduce;
   sym_kStdcall; sym_kCdecl; sym_kCppdecl; sym_kPascal; sym_kRegister; sym_kMwpascal];
   ACTIONS 2510 [sym_kExternal]; ACTIONS 11645 [sym_kMessage]; ACTIONS 11647 [sym_kDeprecated];
   ACTIONS 1016 [sym_kExperimental; sym_kPlatform; sym_kUnimplemented; sym_kCvar];
   ACTIONS 11649 [sym_kExport]; ACTIONS 1016 [sym_kFar; sym_kNear; sym_kSafecall; sym_kAssembler;
   sym_kNostackframe; sym_kInterrupt; sym_kNoreturn; sym_kIocheck; sym_kLocal; sym_kHardfloat;
   sym_kSoftfloat; sym_kMs_abi_default; sym_kMs_abi_cdecl; sym_kSaveregisters;
   sym_kSysv_abi_default; sym_kSysv_abi_cdecl; sym_kVectorcall; sym_kVarargs; sym_kWinapi];
   ACTIONS 11651 [sym_kAlias]; ACTIONS 2510 [sym_kClass; sym_kConst; sym_kConstructor;
   sym_kDestructor; sym_kEnd; sym_kExports; sym_kFinalization; sym_kFunction;
   sym_kImplementation; sym_kInitialization]; ACTIONS 1016 [sym_kInline];
   ACTIONS 2510 [sym_kInterface; sym_kLabel; sym_kProcedure; sym_kProperty; sym_kResourcestring;
   sym_kThreadvar; sym_kType; sym_kUses; sym_kVar]].

(** State 1510. *)
Definition ts_parse_table_1510 : parse_row :=
  [STATE 2854 [sym__ppIf]; STATE 2172 [sym__procAttributeNoExt];
   STATE 2187 [sym__procAttributesPp]; STATE 15605 [sym_procAttribute];
   STATE 1532 [aux_sym__declProc_repeat1]; ACTIONS 11763 [anon_sym_LBRACK];
   ACTIONS 2550 [aux_sym_ppUsesBlock_token1]; ACTIONS 3 [sym__space];
   ACTIONS 5 [sym_ppDirective]; ACTIONS 3 [sym_comment]; ACTIONS 1016 [sym_kDefault;
   sym_kNodefault]; ACTIONS 11641 [sym_kDispId]; ACTIONS 2543 [sym_kGeneric; sym_kOperator];
   ACTIONS 11643 [sym_kPublic]; ACTIONS 2543 [sym_kForward]; ACTIONS 1016 [sym_kStatic;
   sym_kVirtual; sym_kAbstract; sym_kDynamic; sym_kOverride; sym_kOverload; sym_kReintroduce;
   sym_kStdcall; sym_kCdecl; sym_kCppdecl; sym_kPascal; sym_kRegister; sym_kMwpascal];
   ACTIONS 2543 [sym_kExternal]; ACTIONS 11645 [sym_kMessage]; ACTIONS 11647 [sym_kDeprecated];
   ACTIONS 1016 [sym_kExperimental; sym_kPlatform; sym_kUnimplemented; sym_kCvar];
   ACTIONS 11649 [sym_kExport]; ACTIONS 1016 [sym_kFar; sym_kNear; sym_kSafecall; sym_kAssembler;
   sym_kNostackframe; sym_kInterrupt; sym_kNoreturn; sym_kIocheck; sym_kLocal; sym_kHardfloat;
   sym_kSoftfloat; sym_kMs_abi_default; sym_kMs_abi_cdecl; sym_kSaveregisters;
   sym_kSysv_abi_default; sym_kSysv_abi_cdecl; sym_kVectorcall; sym_kVarargs; sym_kWinapi];
   ACTIONS 11651 [sym_kAlias]; ACTIONS 2543 [sym_kClass; sym_kConst; sym_kConstructor;
   sym_kDestructor; sym_kEnd; sym_kExports; sym_kFinalization; sym_kFunction;
   sym_kImplementation; sym_kInitialization]; ACTIONS 1016 [sym_kInline];
   ACTIONS 2543 [sym_kInterface; sym_kLabel; sym_kProcedure; sym_kProperty; sym_kResourcestring;
   sym_kThreadvar; sym_kType; sym_kUses; sym_kVar]].

(** State 1511. *)
Definition ts_parse_table_1511 : parse_row :=
  [STATE 42 [sym__ppIf]; STATE 1477 [sym_ppBlock; sym_declVar]; STATE 5457 [sym_rttiAttributes];
   STATE 1477 [aux_sym_declVars_repeat1]; STATE 5458 [aux_sym_declVar_repeat1];
   STATE 4094 [aux_sym_rttiAttributes_repeat2]; ACTIONS 3633 [anon_sym_LBRACK];
   ACTIONS 3638 [aux_sym_ppUsesBlock_token1]; ACTIONS 3 [sym__space];
   ACTIONS 5 [sym_ppDirective]; ACTIONS 3 [sym_comment]; ACTIONS 11653 [sym_identifier];
   ACTIONS 11655 [sym_kDefault; sym_kNodefault; sym_kDispId]; ACTIONS 3631 [sym_kGeneric];
   ACTIONS 11745 [sym_kOperator]; ACTIONS 11655 [sym_kPublic; sym_kStatic; sym_kVirtual;
   sym_kAbstract; sym_kDynamic; sym_kOverride; sym_kOverload; sym_kReintroduce; sym_kStdcall;
   sym_kCdecl; sym_kCppdecl; sym_kPascal; sym_kRegister; sym_kMwpascal; sym_kMessage;
   sym_kDeprecated; sym_kExperimental; sym_kPlatform; sym_kUnimplemented; sym_kCvar; sym_kExport;
   sym_kFar; sym_kNear; sym_kSafecall; sym_kAssembler; sym_kNostackframe; sym_kInterrupt;
   sym_kNoreturn; sym_kIocheck; sym_kLocal; sym_kHardfloat; sym_kSoftfloat; sym_kMs_abi_default;
   sym_kMs_abi_cdecl; sym_kSaveregisters; sym_kSysv_abi_default; sym_kSysv_abi_cdecl;
   sym_kVectorcall; sym_kVarargs; sym_kWinapi; sym_kAlias]; ACTIONS 3631 [sym_kClass; sym_kConst;
   sym_kConstructor; sym_kDestructor; sym_kEnd; sym_kExports; sym_kFinalization; sym_kFunction;
   sym_kImplementation; sym_kInitialization; sym_kInterface; sym_kLabel; sym_kProcedure;
   sym_kProperty; sym_kResourcestring; sym_kThreadvar; sym_kType; sym_kUses; sym_kVar]].

(** State 1512. *)
Definition ts_parse_table_1512 : parse_row :=
  [STATE 2854 [sym__ppIf]; STATE 2172 [sym__procAttributeNoExt];
   STATE 2187 [sym__procAttributesPp]; STATE 15605 [sym_procAttribute];
   STATE 1532 [aux_sym__declProc_repeat1]; ACTIONS 11766 [anon_sym_LBRACK];
   ACTIONS 2628 [aux_sym_ppUsesBlock_token1]; ACTIONS 3 [sym__space];
   ACTIONS 5 [sym_ppDirective]; ACTIONS 3 [sym_comment]; ACTIONS 1016 [sym_kDefault;
   sym_kNodefault]; ACTIONS 11641 [sym_kDispId]; ACTIONS 2621 [sym_kGeneric; sym_kOperator];
   ACTIONS 11643 [sym_kPublic]; ACTIONS 2621 [sym_kForward]; ACTIONS 1016 [sym_kStatic;
   sym_kVirtual; sym_kAbstract; sym_kDynamic; sym_kOverride; sym_kOverload; sym_kReintroduce;
   sym_kStdcall; sym_kCdecl; sym_kCppdecl; sym_kPascal; sym_kRegister; sym_kMwpascal];
   ACTIONS 2621 [sym_kExternal]; ACTIONS 11645 [sym_kMessage]; ACTIONS 11647 [sym_kDeprecated];
   ACTIONS 1016 [sym_kExperimental; sym_kPlatform; sym_kUnimplemented; sym_kCvar];
   ACTIONS 11649 [sym_kExport]; ACTIONS 1016 [sym_kFar; sym_kNear; sym_kSafecall; sym_kAssembler;
   sym_kNostackframe; sym_kInterrupt; sym_kNoreturn; sym_kIocheck; sym_kLocal; sym_kHardfloat;
   sym_kSoftfloat; sym_kMs_abi_default; sym_kMs_abi_cdecl; sym_kSaveregisters;
   sym_kSysv_abi_default; sym_kSysv_abi_cdecl; sym_kVectorcall; sym_kVarargs; sym_kWinapi];
   ACTIONS 11651 [sym_kAlias]; ACTIONS 2621 [sym_kClass; sym_kConst; sym_kConstructor;
   sym_kDestructor; sym_kEnd; sym_kExports; sym_kFinalization; sym_kFunction;
   sym_kImplementation; sym_kInitialization]; ACTIONS 1016 [sym_kInline];
   ACTIONS 2621 [sym_kInterface; sym_kLabel; sym_kProcedure; sym_kProperty; sym_kResourcestring;
   sym_kThreadvar; sym_kType; sym_kUses; sym_kVar]].

(** State 1513. *)
Definition ts_parse_table_1513 : parse_row :=
  [STATE 2854 [sym__ppIf]; STATE 2172 [sym__procAttributeNoExt];
   STATE 2187 [sym__procAttributesPp]; STATE 15605 [sym_procAttribute];
   STATE 1523 [aux_sym__declProc_repeat1]; ACTIONS 11769 [anon_sym_LBRACK];
   ACTIONS 2659 [aux_sym_ppUsesBlock_token1]; ACTIONS 3 [sym__space];
   ACTIONS 5 [sym_ppDirective]; ACTIONS 3 [sym_comment]; ACTIONS 1016 [sym_kDefault;
   sym_kNodefault]; ACTIONS 11641 [sym_kDispId]; ACTIONS 2652 [sym_kGeneric; sym_kOperator];
   ACTIONS 11643 [sym_kPublic]; ACTIONS 2652 [sym_kForward]; ACTIONS 1016 [sym_kStatic;
   sym_kVirtual; sym_kAbstract; sym_kDynamic; sym_kOverride; sym_kOverload; sym_kReintroduce;
   sym_kStdcall; sym_kCdecl; sym_kCppdecl; sym_kPascal; sym_kRegister; sym_kMwpascal];
   ACTIONS 2652 [sym_kExternal]; ACTIONS 11645 [sym_kMessage]; ACTIONS 11647 [sym_kDeprecated];
   ACTIONS 1016 [sym_kExperimental; sym_kPlatform; sym_kUnimplemented; sym_kCvar];
   ACTIONS 11649 [sym_kExport]; ACTIONS 1016 [sym_kFar; sym_kNear; sym_kSafecall; sym_kAssembler;
   sym_kNostackframe; sym_kInterrupt; sym_kNoreturn; sym_kIocheck; sym_kLocal; sym_kHardfloat;
   sym_kSoftfloat; sym_kMs_abi_default; sym_kMs_abi_cdecl; sym_kSaveregisters;
   sym_kSysv_abi_default; sym_kSysv_abi_cdecl; sym_kVectorcall; sym_kVarargs; sym_kWinapi];
   ACTIONS 11651 [sym_kAlias]; ACTIONS 2652 [sym_kClass; sym_kConst; sym_kConstructor;
   sym_kDestructor; sym_kEnd; sym_kExports; sym_kFinalization; sym_kFunction;
   sym_kImplementation; sym_kInitialization]; ACTIONS 1016 [sym_kInline];
   ACTIONS 2652 [sym_kInterface; sym_kLabel; sym_kProcedure; sym_kProperty; sym_kResourcestring;
   sym_kThreadvar; sym_kType; sym_kUses; sym_kVar]].

(** State 1514. *)
Definition ts_parse_table_1514 : parse_row :=
  [STATE 2854 [sym__ppIf]; STATE 2172 [sym__procAttributeNoExt];
   STATE 2187 [sym__procAttributesPp]; STATE 15605 [sym_procAttribute];
   STATE 1524 [aux_sym__declProc_repeat1]; ACTIONS 11772 [anon_sym_LBRACK];
   ACTIONS 2692 [aux_sym_ppUsesBlock_token1]; ACTIONS 3 [sym__space];
   ACTIONS 5 [sym_ppDirective]; ACTIONS 3 [sym_comment]; ACTIONS 1016 [sym_kDefault;
   sym_kNodefault]; ACTIONS 11641 [sym_kDispId]; ACTIONS 2685 [sym_kGeneric; sym_kOperator];
   ACTIONS 11643 [sym_kPublic]; ACTIONS 2685 [sym_kForward]; ACTIONS 1016 [sym_kStatic;
   sym_kVirtual; sym_kAbstract; sym_kDynamic; sym_kOverride; sym_kOverload; sym_kReintroduce;
   sym_kStdcall; sym_kCdecl; sym_kCppdecl; sym_kPascal; sym_kRegister; sym_kMwpascal];
   ACTIONS 2685 [sym_kExternal]; ACTIONS 11645 [sym_kMessage]; ACTIONS 11647 [sym_kDeprecated];
   ACTIONS 1016 [sym_kExperimental; sym_kPlatform; sym_kUnimplemented; sym_kCvar];
   ACTIONS 11649 [sym_kExport]; ACTIONS 1016 [sym_kFar; sym_kNear; sym_kSafecall; sym_kAssembler;
   sym_kNostackframe; sym_kInterrupt; sym_kNoreturn; sym_kIocheck; sym_kLocal; sym_kHardfloat;
   sym_kSoftfloat; sym_kMs_abi_default; sym_kMs_abi_cdecl; sym_kSaveregisters;
   sym_kSysv_abi_default; sym_kSysv_abi_cdecl; sym_kVectorcall; sym_kVarargs; sym_kWinapi];
   ACTIONS 11651 [sym_kAlias]; ACTIONS 2685 [sym_kClass; sym_kConst; sym_kConstructor;
   sym_kDestructor; sym_kEnd; sym_kExports; sym_kFinalization; sym_kFunction;
   sym_kImplementation; sym_kInitialization]; ACTIONS 1016 [sym_kInline];
   ACTIONS 2685 [sym_kInterface; sym_kLabel; sym_kProcedure; sym_kProperty; sym_kResourcestring;
   sym_kThreadvar; sym_kType; sym_kUses; sym_kVar]].

(** State 1515. *)
Definition ts_parse_table_1515 : parse_row :=
  [STATE 2854 [sym__ppIf]; STATE 2172 [sym__procAttributeNoExt];
   STATE 2187 [sym__procAttributesPp]; STATE 15605 [sym_procAttribute];
   STATE 1532 [aux_sym__declProc_repeat1]; ACTIONS 11775 [anon_sym_LBRACK];
   ACTIONS 2739 [aux_sym_ppUsesBlock_token1]; ACTIONS 3 [sym__space];
   ACTIONS 5 [sym_ppDirective]; ACTIONS 3 [sym_comment]; ACTIONS 1016 [sym_kDefault;
   sym_kNodefault]; ACTIONS 11641 [sym_kDispId]; ACTIONS 2732 [sym_kGeneric; sym_kOperator];
   ACTIONS 11643 [sym_kPublic]; ACTIONS 2732 [sym_kForward]; ACTIONS 1016 [sym_kStatic;
   sym_kVirtual; sym_kAbstract; sym_kDynamic; sym_kOverride; sym_kOverload; sym_kReintroduce;
   sym_kStdcall; sym_kCdecl; sym_kCppdecl; sym_kPascal; sym_kRegister; sym_kMwpascal];
   ACTIONS 2732 [sym_kExternal]; ACTIONS 11645 [sym_kMessage]; ACTIONS 11647 [sym_kDeprecated];
   ACTIONS 1016 [sym_kExperimental; sym_kPlatform; sym_kUnimplemented; sym_kCvar];
   ACTIONS 11649 [sym_kExport]; ACTIONS 1016 [sym_kFar; sym_kNear; sym_kSafecall; sym_kAssembler;
   sym_kNostackframe; sym_kInterrupt; sym_kNoreturn; sym_kIocheck; sym_kLocal; sym_kHardfloat;
   sym_kSoftfloat; sym_kMs_abi_default; sym_kMs_abi_cdecl; sym_kSaveregisters;
   sym_kSysv_abi_default; sym_kSysv_abi_cdecl; sym_kVectorcall; sym_kVarargs; sym_kWinapi];
   ACTIONS 11651 [sym_kAlias]; ACTIONS 2732 [sym_kClass; sym_kConst; sym_kConstructor;
   sym_kDestructor; sym_kEnd; sym_kExports; sym_kFinalization; sym_kFunction;
   sym_kImplementation; sym_kInitialization]; ACTIONS 1016 [sym_kInline];
   ACTIONS 2732 [sym_kInterface; sym_kLabel; sym_kProcedure; sym_kProperty; sym_kResourcestring;
   sym_kThreadvar; sym_kType; sym_kUses; sym_kVar]].

(** State 1516. *)
Definition ts_parse_table_1516 : parse_row :=
  [STATE 2854 [sym__ppIf]; STATE 2172 [sym__procAttributeNoExt];
   STATE 2187 [sym__procAttributesPp]; STATE 15605 [sym_procAttribute];
   STATE 1532 [aux_sym__declProc_repeat1]; ACTIONS 11778 [anon_sym_LBRACK];
   ACTIONS 2848 [aux_sym_ppUsesBlock_token1]; ACTIONS 3 [sym__space];
   ACTIONS 5 [sym_ppDirective]; ACTIONS 3 [sym_comment]; ACTIONS 1016 [sym_kDefault;
   sym_kNodefault]; ACTIONS 11641 [sym_kDispId]; ACTIONS 2841 [sym_kGeneric; sym_kOperator];
   ACTIONS 11643 [sym_kPublic]; ACTIONS 2841 [sym_kForward]; ACTIONS 1016 [sym_kStatic;
   sym_kVirtual; sym_kAbstract; sym_kDynamic; sym_kOverride; sym_kOverload; sym_kReintroduce;
   sym_kStdcall; sym_kCdecl; sym_kCppdecl; sym_kPascal; sym_kRegister; sym_kMwpascal];
   ACTIONS 2841 [sym_kExternal]; ACTIONS 11645 [sym_kMessage]; ACTIONS 11647 [sym_kDeprecated];
   ACTIONS 1016 [sym_kExperimental; sym_kPlatform; sym_kUnimplemented; sym_kCvar];
   ACTIONS 11649 [sym_kExport]; ACTIONS 1016 [sym_kFar; sym_kNear; sym_kSafecall; sym_kAssembler;
   sym_kNostackframe; sym_kInterrupt; sym_kNoreturn; sym_kIocheck; sym_kLocal; sym_kHardfloat;
   sym_kSoftfloat; sym_kMs_abi_default; sym_kMs_abi_cdecl; sym_kSaveregisters;
   sym_kSysv_abi_default; sym_kSysv_abi_cdecl; sym_kVectorcall; sym_kVarargs; sym_kWinapi];
   ACTIONS 11651 [sym_kAlias]; ACTIONS 2841 [sym_kClass; sym_kConst; sym_kConstructor;
   sym_kDestructor; sym_kEnd; sym_kExports; sym_kFinalization; sym_kFunction;
   sym_kImplementation; sym_kInitialization]; ACTIONS 1016 [sym_kInline];
   ACTIONS 2841 [sym_kInterface; sym_kLabel; sym_kProcedure; sym_kProperty; sym_kResourcestring;
   sym_kThreadvar; sym_kType; sym_kUses; sym_kVar]].

(** State 1517. *)
Definition ts_parse_table_1517 : parse_row :=
  [STATE 2854 [sym__ppIf]; STATE 2172 [sym__procAttributeNoExt];
   STATE 2187 [sym__procAttributesPp]; STATE 15605 [sym_procAttribute];
   STATE 1532 [aux_sym__declProc_repeat1]; ACTIONS 11781 [anon_sym_LBRACK];
   ACTIONS 2881 [aux_sym_ppUsesBlock_token1]; ACTIONS 3 [sym__space];
   ACTIONS 5 [sym_ppDirective]; ACTIONS 3 [sym_comment]; ACTIONS 1016 [sym_kDefault;
   sym_kNodefault]; ACTIONS 11641 [sym_kDispId]; ACTIONS 2874 [sym_kGeneric; sym_kOperator];
   ACTIONS 11643 [sym_kPublic]; ACTIONS 2874 [sym_kForward]; ACTIONS 1016 [sym_kStatic;
   sym_kVirtual; sym_kAbstract; sym_kDynamic; sym_kOverride; sym_kOverload; sym_kReintroduce;
   sym_kStdcall; sym_kCdecl; sym_kCppdecl; sym_kPascal; sym_kRegister; sym_kMwpascal];
   ACTIONS 2874 [sym_kExternal]; ACTIONS 11645 [sym_kMessage]; ACTIONS 11647 [sym_kDeprecated];
   ACTIONS 1016 [sym_kExperimental; sym_kPlatform; sym_kUnimplemented; sym_kCvar];
   ACTIONS 11649 [sym_kExport]; ACTIONS 1016 [sym_kFar; sym_kNear; sym_kSafecall; sym_kAssembler;
   sym_kNostackframe; sym_kInterrupt; sym_kNoreturn; sym_kIocheck; sym_kLocal; sym_kHardfloat;
   sym_kSoftfloat; sym_kMs_abi_default; sym_kMs_abi_cdecl; sym_kSaveregisters;
   sym_kSysv_abi_default; sym_kSysv_abi_cdecl; sym_kVectorcall; sym_kVarargs; sym_kWinapi];
   ACTIONS 11651 [sym_kAlias]; ACTIONS 2874 [sym_kClass; sym_kConst; sym_kConstructor;
   sym_kDestructor; sym_kEnd; sym_kExports; sym_kFinalization; sym_kFunction;
   sym_kImplementation; sym_kInitialization]; ACTIONS 1016 [sym_kInline];
   ACTIONS 2874 [sym_kInterface; sym_kLabel; sym_kProcedure; sym_kProperty; sym_kResourcestring;
   sym_kThreadvar; sym_kType; sym_kUses; sym_kVar]].

(** State 1518. *)
Definition ts_parse_table_1518 : parse_row :=
  [STATE 2854 [sym__ppIf]; STATE 2172 [sym__procAttributeNoExt];
   STATE 2187 [sym__procAttributesPp]; STATE 15605 [sym_procAttribute];
   STATE 1526 [aux_sym__declProc_repeat1]; ACTIONS 11784 [anon_sym_LBRACK];
   ACTIONS 2914 [aux_sym_ppUsesBlock_token1]; ACTIONS 3 [sym__space];
   ACTIONS 5 [sym_ppDirective]; ACTIONS 3 [sym_comment]; ACTIONS 1016 [sym_kDefault;
   sym_kNodefault]; ACTIONS 11641 [sym_kDispId]; ACTIONS 2907 [sym_kGeneric; sym_kOperator];
   ACTIONS 11643 [sym_kPublic]; ACTIONS 2907 [sym_kForward]; ACTIONS 1016 [sym_kStatic;
   sym_kVirtual; sym_kAbstract; sym_kDynamic; sym_kOverride; sym_kOverload; sym_kReintroduce;
   sym_kStdcall; sym_kCdecl; sym_kCppdecl; sym_kPascal; sym_kRegister; sym_kMwpascal];
   ACTIONS 2907 [sym_kExternal]; ACTIONS 11645 [sym_kMessage]; ACTIONS 11647 [sym_kDeprecated];
   ACTIONS 1016 [sym_kExperimental; sym_kPlatform; sym_kUnimplemented; sym_kCvar];
   ACTIONS 11649 [sym_kExport]; ACTIONS 1016 [sym_kFar; sym_kNear; sym_kSafecall; sym_kAssembler;
   sym_kNostackframe; sym_kInterrupt; sym_kNoreturn; sym_kIocheck; sym_kLocal; sym_kHardfloat;
   sym_kSoftfloat; sym_kMs_abi_default; sym_kMs_abi_cdecl; sym_kSaveregisters;
   sym_kSysv_abi_default; sym_kSysv_abi_cdecl; sym_kVectorcall; sym_kVarargs; sym_kWinapi];
   ACTIONS 11651 [sym_kAlias]; ACTIONS 2907 [sym_kClass; sym_kConst; sym_kConstructor;
   sym_kDestructor; sym_kEnd; sym_kExports; sym_kFinalization; sym_kFunction;
   sym_kImplementation; sym_kInitialization]; ACTIONS 1016 [sym_kInline];
   ACTIONS 2907 [sym_kInterface; sym_kLabel; sym_kProcedure; sym_kProperty; sym_kResourcestring;
   sym_kThreadvar; sym_kType; sym_kUses; sym_kVar]].

(** State 1519. *)
Definition ts_parse_table_1519 : parse_row :=
  [STATE 2854 [sym__ppIf]; STATE 2172 [sym__procAttributeNoExt];
   STATE 2187 [sym__procAttributesPp]; STATE 15605 [sym_procAttribute];
   STATE 1532 [aux_sym__declProc_repeat1]; ACTIONS 11787 [anon_sym_LBRACK];
   ACTIONS 2975 [aux_sym_ppUsesBlock_token1]; ACTIONS 3 [sym__space];
   ACTIONS 5 [sym_ppDirective]; ACTIONS 3 [sym_comment]; ACTIONS 1016 [sym_kDefault;
   sym_kNodefault]; ACTIONS 11641 [sym_kDispId]; ACTIONS 2968 [sym_kGeneric; sym_kOperator];
   ACTIONS 11643 [sym_kPublic]; ACTIONS 2968 [sym_kForward]; ACTIONS 1016 [sym_kStatic;
   sym_kVirtual; sym_kAbstract; sym_kDynamic; sym_kOverride; sym_kOverload; sym_kReintroduce;
   sym_kStdcall; sym_kCdecl; sym_kCppdecl; sym_kPascal; sym_kRegister; sym_kMwpascal];
   ACTIONS 2968 [sym_kExternal]; ACTIONS 11645 [sym_kMessage]; ACTIONS 11647 [sym_kDeprecated];
   ACTIONS 1016 [sym_kExperimental; sym_kPlatform; sym_kUnimplemented; sym_kCvar];
   ACTIONS 11649 [sym_kExport]; ACTIONS 1016 [sym_kFar; sym_kNear; sym_kSafecall; sym_kAssembler;
   sym_kNostackframe; sym_kInterrupt; sym_kNoreturn; sym_kIocheck; sym_kLocal; sym_kHardfloat;
   sym_kSoftfloat; sym_kMs_abi_default; sym_kMs_abi_cdecl; sym_kSaveregisters;
   sym_kSysv_abi_default; sym_kSysv_abi_cdecl; sym_kVectorcall; sym_kVarargs; sym_kWinapi];
   ACTIONS 11651 [sym_kAlias]; ACTIONS 2968 [sym_kClass; sym_kConst; sym_kConstructor;
   sym_kDestructor; sym_kEnd; sym_kExports; sym_kFinalization; sym_kFunction;
   sym_kImplementation; sym_kInitialization]; ACTIONS 1016 [sym_kInline];
   ACTIONS 2968 [sym_kInterface; sym_kLabel; sym_kProcedure; sym_kProperty; sym_kResourcestring;
   sym_kThreadvar; sym_kType; sym_kUses; sym_kVar]].

(** State 1520. *)
Definition ts_parse_table_1520 : parse_row :=
  [STATE 2854 [sym__ppIf]; STATE 2172 [sym__procAttributeNoExt];
   STATE 2187 [sym__procAttributesPp]; STATE 15605 [sym_procAttribute];
   STATE 1527 [aux_sym__declProc_repeat1]; ACTIONS 11790 [anon_sym_LBRACK];
   ACTIONS 3008 [aux_sym_ppUsesBlock_token1]; ACTIONS 3 [sym__space];
   ACTIONS 5 [sym_ppDirective]; ACTIONS 3 [sym_comment]; ACTIONS 1016 [sym_kDefault;
   sym_kNodefault]; ACTIONS 11641 [sym_kDispId]; ACTIONS 3001 [sym_kGeneric; sym_kOperator];
   ACTIONS 11643 [sym_kPublic]; ACTIONS 3001 [sym_kForward]; ACTIONS 1016 [sym_kStatic;
   sym_kVirtual; sym_kAbstract; sym_kDynamic; sym_kOverride; sym_kOverload; sym_kReintroduce;
   sym_kStdcall; sym_kCdecl; sym_kCppdecl; sym_kPascal; sym_kRegister; sym_kMwpascal];
   ACTIONS 3001 [sym_kExternal]; ACTIONS 11645 [sym_kMessage]; ACTIONS 11647 [sym_kDeprecated];
   ACTIONS 1016 [sym_kExperimental; sym_kPlatform; sym_kUnimplemented; sym_kCvar];
   ACTIONS 11649 [sym_kExport]; ACTIONS 1016 [sym_kFar; sym_kNear; sym_kSafecall; sym_kAssembler;
   sym_kNostackframe; sym_kInterrupt; sym_kNoreturn; sym_kIocheck; sym_kLocal; sym_kHardfloat;
   sym_kSoftfloat; sym_kMs_abi_default; sym_kMs_abi_cdecl; sym_kSaveregisters;
   sym_kSysv_abi_default; sym_kSysv_abi_cdecl; sym_kVectorcall; sym_kVarargs; sym_kWinapi];
   ACTIONS 11651 [sym_kAlias]; ACTIONS 3001 [sym_kClass; sym_kConst; sym_kConstructor;
   sym_kDestructor; sym_kEnd; sym_kExports; sym_kFinalization; sym_kFunction;
   sym_kImplementation; sym_kInitialization]; ACTIONS 1016 [sym_kInline];
   ACTIONS 3001 [sym_kInterface; sym_kLabel; sym_kProcedure; sym_kProperty; sym_kResourcestring;
   sym_kThreadvar; sym_kType; sym_kUses; sym_kVar]].

(** State 1521. *)
Definition ts_parse_table_1521 : parse_row :=
  [STATE 2854 [sym__ppIf]; STATE 2172 [sym__procAttributeNoExt];
   STATE 2187 [sym__procAttributesPp]; STATE 15605 [sym_procAttribute];
   STATE 1528 [aux_sym__declProc_repeat1]; ACTIONS 11793 [anon_sym_LBRACK];
   ACTIONS 3041 [aux_sym_ppUsesBlock_token1]; ACTIONS 3 [sym__space];
   ACTIONS 5 [sym_ppDirective]; ACTIONS 3 [sym_comment]; ACTIONS 1016 [sym_kDefault;
   sym_kNodefault]; ACTIONS 11641 [sym_kDispId]; ACTIONS 3034 [sym_kGeneric; sym_kOperator];
   ACTIONS 11643 [sym_kPublic]; ACTIONS 3034 [sym_kForward]; ACTIONS 1016 [sym_kStatic;
   sym_kVirtual; sym_kAbstract; sym_kDynamic; sym_kOverride; sym_kOverload; sym_kReintroduce;
   sym_kStdcall; sym_kCdecl; sym_kCppdecl; sym_kPascal; sym_kRegister; sym_kMwpascal];
   ACTIONS 3034 [sym_kExternal]; ACTIONS 11645 [sym_kMessage]; ACTIONS 11647 [sym_kDeprecated];
   ACTIONS 1016 [sym_kExperimental; sym_kPlatform; sym_kUnimplemented; sym_kCvar];
   ACTIONS 11649 [sym_kExport]; ACTIONS 1016 [sym_kFar; sym_kNear; sym_kSafecall; sym_kAssembler;
   sym_kNostackframe; sym_kInterrupt; sym_kNoreturn; sym_kIocheck; sym_kLocal; sym_kHardfloat;
   sym_kSoftfloat; sym_kMs_abi_default; sym_kMs_abi_cdecl; sym_kSaveregisters;
   sym_kSysv_abi_default; sym_kSysv_abi_cdecl; sym_kVectorcall; sym_kVarargs; sym_kWinapi];
   ACTIONS 11651 [sym_kAlias]; ACTIONS 3034 [sym_kClass; sym_kConst; sym_kConstructor;
   sym_kDestructor; sym_kEnd; sym_kExports; sym_kFinalization; sym_kFunction;
   sym_kImplementation; sym_kInitialization]; ACTIONS 1016 [sym_kInline];
   ACTIONS 3034 [sym_kInterface; sym_kLabel; sym_kProcedure; sym_kProperty; sym_kResourcestring;
   sym_kThreadvar; sym_kType; sym_kUses; sym_kVar]].

(** State 1522. *)
Definition ts_parse_table_1522 : parse_row :=
  [STATE 2854 [sym__ppIf]; STATE 2172 [sym__procAttributeNoExt];
   STATE 2187 [sym__procAttributesPp]; STATE 15605 [sym_procAttribute];
   STATE 1532 [aux_sym__declProc_repeat1]; ACTIONS 11796 [anon_sym_LBRACK];
   ACTIONS 3074 [aux_sym_ppUsesBlock_token1]; ACTIONS 3 [sym__space];
   ACTIONS 5 [sym_ppDirective]; ACTIONS 3 [sym_comment]; ACTIONS 1016 [sym_kDefault;
   sym_kNodefault]; ACTIONS 11641 [sym_kDispId]; ACTIONS 3067 [sym_kGeneric; sym_kOperator];
   ACTIONS 11643 [sym_kPublic]; ACTIONS 3067 [sym_kForward]; ACTIONS 1016 [sym_kStatic;
   sym_kVirtual; sym_kAbstract; sym_kDynamic; sym_kOverride; sym_kOverload; sym_kReintroduce;
   sym_kStdcall; sym_kCdecl; sym_kCppdecl; sym_kPascal; sym_kRegister; sym_kMwpascal];
   ACTIONS 3067 [sym_kExternal]; ACTIONS 11645 [sym_kMessage]; ACTIONS 11647 [sym_kDeprecated];
   ACTIONS 1016 [sym_kExperimental; sym_kPlatform; sym_kUnimplemented; sym_kCvar];
   ACTIONS 11649 [sym_kExport]; ACTIONS 1016 [sym_kFar; sym_kNear; sym_kSafecall; sym_kAssembler;
   sym_kNostackframe; sym_kInterrupt; sym_kNoreturn; sym_kIocheck; sym_kLocal; sym_kHardfloat;
   sym_kSoftfloat; sym_kMs_abi_default; sym_kMs_abi_cdecl; sym_kSaveregisters;
   sym_kSysv_abi_default; sym_kSysv_abi_cdecl; sym_kVectorcall; sym_kVarargs; sym_kWinapi];
   ACTIONS 11651 [sym_kAlias]; ACTIONS 3067 [sym_kClass; sym_kConst; sym_kConstructor;
   sym_kDestructor; sym_kEnd; sym_kExports; sym_kFinalization; sym_kFunction;
   sym_kImplementation; sym_kInitialization]; ACTIONS 1016 [sym_kInline];
   ACTIONS 3067 [sym_kInterface; sym_kLabel; sym_kProcedure; sym_kProperty; sym_kResourcestring;
   sym_kThreadvar; sym_kType; sym_kUses; sym_kVar]].

(** State 1523. *)
Definition ts_parse_table_1523 : parse_row :=
  [STATE 2854 [sym__ppIf]; STATE 2172 [sym__procAttributeNoExt];
   STATE 2187 [sym__procAttributesPp]; STATE 15605 [sym_procAttribute];
   STATE 1532 [aux_sym__declProc_repeat1]; ACTIONS 11799 [anon_sym_LBRACK];
   ACTIONS 3107 [aux_sym_ppUsesBlock_token1]; ACTIONS 3 [sym__space];
   ACTIONS 5 [sym_ppDirective]; ACTIONS 3 [sym_comment]; ACTIONS 1016 [sym_kDefault;
   sym_kNodefault]; ACTIONS 11641 [sym_kDispId]; ACTIONS 3100 [sym_kGeneric; sym_kOperator];
   ACTIONS 11643 [sym_kPublic]; ACTIONS 3100 [sym_kForward]; ACTIONS 1016 [sym_kStatic;
   sym_kVirtual; sym_kAbstract; sym_kDynamic; sym_kOverride; sym_kOverload; sym_kReintroduce;
   sym_kStdcall; sym_kCdecl; sym_kCppdecl; sym_kPascal; sym_kRegister; sym_kMwpascal];
   ACTIONS 3100 [sym_kExternal]; ACTIONS 11645 [sym_kMessage]; ACTIONS 11647 [sym_kDeprecated];
   ACTIONS 1016 [sym_kExperimental; sym_kPlatform; sym_kUnimplemented; sym_kCvar];
   ACTIONS 11649 [sym_kExport]; ACTIONS 1016 [sym_kFar; sym_kNear; sym_kSafecall; sym_kAssembler;
   sym_kNostackframe; sym_kInterrupt; sym_kNoreturn; sym_kIocheck; sym_kLocal; sym_kHardfloat;
   sym_kSoftfloat; sym_kMs_abi_default; sym_kMs_abi_cdecl; sym_kSaveregisters;
   sym_kSysv_abi_default; sym_kSysv_abi_cdecl; sym_kVectorcall; sym_kVarargs; sym_kWinapi];
   ACTIONS 11651 [sym_kAlias]; ACTIONS 3100 [sym_kClass; sym_kConst; sym_kConstructor;
   sym_kDestructor; sym_kEnd; sym_kExports; sym_kFinalization; sym_kFunction;
   sym_kImplementation; sym_kInitialization]; ACTIONS 1016 [sym_kInline];
   ACTIONS 3100 [sym_kInterface; sym_kLabel; sym_kProcedure; sym_kProperty; sym_kResourcestring;
   sym_kThreadvar; sym_kType; sym_kUses; sym_kVar]].

(** State 1524. *)
Definition ts_parse_table_1524 : parse_row :=
  [STATE 2854 [sym__ppIf]; STATE 2172 [sym__procAttributeNoExt];
   STATE 2187 [sym__procAttributesPp]; STATE 15605 [sym_procAttribute];
   STATE 1532 [aux_sym__declProc_repeat1]; ACTIONS 11802 [anon_sym_LBRACK];
   ACTIONS 3140 [aux_sym_ppUsesBlock_token1]; ACTIONS 3 [sym__space];
   ACTIONS 5 [sym_ppDirective]; ACTIONS 3 [sym_comment]; ACTIONS 1016 [sym_kDefault;
   sym_kNodefault]; ACTIONS 11641 [sym_kDispId]; ACTIONS 3133 [sym_kGeneric; sym_kOperator];
   ACTIONS 11643 [sym_kPublic]; ACTIONS 3133 [sym_kForward]; ACTIONS 1016 [sym_kStatic;
   sym_kVirtual; sym_kAbstract; sym_kDynamic; sym_kOverride; sym_kOverload; sym_kReintroduce;
   sym_kStdcall; sym_kCdecl; sym_kCppdecl; sym_kPascal; sym_kRegister; sym_kMwpascal];
   ACTIONS 3133 [sym_kExternal]; ACTIONS 11645 [sym_kMessage]; ACTIONS 11647 [sym_kDeprecated];
   ACTIONS 1016 [sym_kExperimental; sym_kPlatform; sym_kUnimplemented; sym_kCvar];
   ACTIONS 11649 [sym_kExport]; ACTIONS 1016 [sym_kFar; sym_kNear; sym_kSafecall; sym_kAssembler;
   sym_kNostackframe; sym_kInterrupt; sym_kNoreturn; sym_kIocheck; sym_kLocal; sym_kHardfloat;
   sym_kSoftfloat; sym_kMs_abi_default; sym_kMs_abi_cdecl; sym_kSaveregisters;
   sym_kSysv_abi_default; sym_kSysv_abi_cdecl; sym_kVectorcall; sym_kVarargs; sym_kWinapi];
   ACTIONS 11651 [sym_kAlias]; ACTIONS 3133 [sym_kClass; sym_kConst; sym_kConstructor;
   sym_kDestructor; sym_kEnd; sym_kExports; sym_kFinalization; sym_kFunction;
   sym_kImplementation; sym_kInitialization]; ACTIONS 1016 [sym_kInline];
   ACTIONS 3133 [sym_kInterface; sym_kLabel; sym_kProcedure; sym_kProperty; sym_kResourcestring;
   sym_kThreadvar; sym_kType; sym_kUses; sym_kVar]].

(** State 1525. *)
Definition ts_parse_table_1525 : parse_row :=
  [STATE 2854 [sym__ppIf]; STATE 2172 [sym__procAttributeNoExt];
   STATE 2187 [sym__procAttributesPp]; STATE 15605 [sym_procAttribute];
   STATE 1530 [aux_sym__declProc_repeat1]; ACTIONS 11805 [anon_sym_LBRACK];
   ACTIONS 2211 [aux_sym_ppUsesBlock_token1]; ACTIONS 3 [sym__space];
   ACTIONS 5 [sym_ppDirective]; ACTIONS 3 [sym_comment]; ACTIONS 1016 [sym_kDefault;
   sym_kNodefault]; ACTIONS 11641 [sym_kDispId]; ACTIONS 2204 [sym_kGeneric; sym_kOperator];
   ACTIONS 11643 [sym_kPublic]; ACTIONS 2204 [sym_kForward]; ACTIONS 1016 [sym_kStatic;
   sym_kVirtual; sym_kAbstract; sym_kDynamic; sym_kOverride; sym_kOverload; sym_kReintroduce;
   sym_kStdcall; sym_kCdecl; sym_kCppdecl; sym_kPascal; sym_kRegister; sym_kMwpascal];
   ACTIONS 2204 [sym_kExternal]; ACTIONS 11645 [sym_kMessage]; ACTIONS 11647 [sym_kDeprecated];
   ACTIONS 1016 [sym_kExperimental; sym_kPlatform; sym_kUnimplemented; sym_kCvar];
   ACTIONS 11649 [sym_kExport]; ACTIONS 1016 [sym_kFar; sym_kNear; sym_kSafecall; sym_kAssembler;
   sym_kNostackframe; sym_kInterrupt; sym_kNoreturn; sym_kIocheck; sym_kLocal; sym_kHardfloat;
   sym_kSoftfloat; sym_kMs_abi_default; sym_kMs_abi_cdecl; sym_kSaveregisters;
   sym_kSysv_abi_default; sym_kSysv_abi_cdecl; sym_kVectorcall; sym_kVarargs; sym_kWinapi];
   ACTIONS 11651 [sym_kAlias]; ACTIONS 2204 [sym_kClass; sym_kConst; sym_kConstructor;
   sym_kDestructor; sym_kEnd; sym_kExports; sym_kFinalization; sym_kFunction;
   sym_kImplementation; sym_kInitialization]; ACTIONS 1016 [sym_kInline];
   ACTIONS 2204 [sym_kInterface; sym_kLabel; sym_kProcedure; sym_kProperty; sym_kResourcestring;
   sym_kThreadvar; sym_kType; sym_kUses; sym_kVar]].

(** State 1526. *)
Definition ts_parse_table_1526 : parse_row :=
  [STATE 2854 [sym__ppIf]; STATE 2172 [sym__procAttributeNoExt];
   STATE 2187 [sym__procAttributesPp]; STATE 15605 [sym_procAttribute];
   STATE 1532 [aux_sym__declProc_repeat1]; ACTIONS 11808 [anon_sym_LBRACK];
   ACTIONS 992 [aux_sym_ppUsesBlock_token1]; ACTIONS 3 [sym__space]; ACTIONS 5 [sym_ppDirective];
   ACTIONS 3 [sym_comment]; ACTIONS 1016 [sym_kDefault; sym_kNodefault];
   ACTIONS 11641 [sym_kDispId]; ACTIONS 985 [sym_kGeneric; sym_kOperator];
   ACTIONS 11643 [sym_kPublic]; ACTIONS 985 [sym_kForward]; ACTIONS 1016 [sym_kStatic;
   sym_kVirtual; sym_kAbstract; sym_kDynamic; sym_kOverride; sym_kOverload; sym_kReintroduce;
   sym_kStdcall; sym_kCdecl; sym_kCppdecl; sym_kPascal; sym_kRegister; sym_kMwpascal];
   ACTIONS 985 [sym_kExternal]; ACTIONS 11645 [sym_kMessage]; ACTIONS 11647 [sym_kDeprecated];
   ACTIONS 1016 [sym_kExperimental; sym_kPlatform; sym_kUnimplemented; sym_kCvar];
   ACTIONS 11649 [sym_kExport]; ACTIONS 1016 [sym_kFar; sym_kNear; sym_kSafecall; sym_kAssembler;
   sym_kNostackframe; sym_kInterrupt; sym_kNoreturn; sym_kIocheck; sym_kLocal; sym_kHardfloat;
   sym_kSoftfloat; sym_kMs_abi_default; sym_kMs_abi_cdecl; sym_kSaveregisters;
   sym_kSysv_abi_default; sym_kSysv_abi_cdecl; sym_kVectorcall; sym_kVarargs; sym_kWinapi];
   ACTIONS 11651 [sym_kAlias]; ACTIONS 985 [sym_kClass; sym_kConst; sym_kConstructor;
   sym_kDestructor; sym_kEnd; sym_kExports; sym_kFinalization; sym_kFunction;
   sym_kImplementation; sym_kInitialization]; ACTIONS 1016 [sym_kInline];
   ACTIONS 985 [sym_kInterface; sym_kLabel; sym_kProcedure; sym_kProperty; sym_kResourcestring;
   sym_kThreadvar; sym_kType; sym_kUses; sym_kVar]].

(** State 1527. *)
Definition ts_parse_table_1527 : parse_row :=
  [STATE 2854 [sym__ppIf]; STATE 2172 [sym__procAttributeNoExt];
   STATE 2187 [sym__procAttributesPp]; STATE 15605 [sym_procAttribute];
   STATE 1532 [aux_sym__declProc_repeat1]; ACTIONS 11811 [anon_sym_LBRACK];
   ACTIONS 1025 [aux_sym_ppUsesBlock_token1]; ACTIONS 3 [sym__space];
   ACTIONS 5 [sym_ppDirective]; ACTIONS 3 [sym_comment]; ACTIONS 1016 [sym_kDefault;
   sym_kNodefault]; ACTIONS 11641 [sym_kDispId]; ACTIONS 1018 [sym_kGeneric; sym_kOperator];
   ACTIONS 11643 [sym_kPublic]; ACTIONS 1018 [sym_kForward]; ACTIONS 1016 [sym_kStatic;
   sym_kVirtual; sym_kAbstract; sym_kDynamic; sym_kOverride; sym_kOverload; sym_kReintroduce;
   sym_kStdcall; sym_kCdecl; sym_kCppdecl; sym_kPascal; sym_kRegister; sym_kMwpascal];
   ACTIONS 1018 [sym_kExternal]; ACTIONS 11645 [sym_kMessage]; ACTIONS 11647 [sym_kDeprecated];
   ACTIONS 1016 [sym_kExperimental; sym_kPlatform; sym_kUnimplemented; sym_kCvar];
   ACTIONS 11649 [sym_kExport]; ACTIONS 1016 [sym_kFar; sym_kNear; sym_kSafecall; sym_kAssembler;
   sym_kNostackframe; sym_kInterrupt; sym_kNoreturn; sym_kIocheck; sym_kLocal; sym_kHardfloat;
   sym_kSoftfloat; sym_kMs_abi_default; sym_kMs_abi_cdecl; sym_kSaveregisters;
   sym_kSysv_abi_default; sym_kSysv_abi_cdecl; sym_kVectorcall; sym_kVarargs; sym_kWinapi];
   ACTIONS 11651 [sym_kAlias]; ACTIONS 1018 [sym_kClass; sym_kConst; sym_kConstructor;
   sym_kDestructor; sym_kEnd; sym_kExports; sym_kFinalization; sym_kFunction;
   sym_kImplementation; sym_kInitialization]; ACTIONS 1016 [sym_kInline];
   ACTIONS 1018 [sym_kInterface; sym_kLabel; sym_kProcedure; sym_kProperty; sym_kResourcestring;
   sym_kThreadvar; sym_kType; sym_kUses; sym_kVar]].

(** State 1528. *)
Definition ts_parse_table_1528 : parse_row :=
  [STATE 2854 [sym__ppIf]; STATE 2172 [sym__procAttributeNoExt];
   STATE 2187 [sym__procAttributesPp]; STATE 15605 [sym_procAttribute];
   STATE 1532 [aux_sym__declProc_repeat1]; ACTIONS 11814 [anon_sym_LBRACK];
   ACTIONS 1056 [aux_sym_ppUsesBlock_token1]; ACTIONS 3 [sym__space];
   ACTIONS 5 [sym_ppDirective]; ACTIONS 3 [sym_comment]; ACTIONS 1016 [sym_kDefault;
   sym_kNodefault]; ACTIONS 11641 [sym_kDispId]; ACTIONS 1049 [sym_kGeneric; sym_kOperator];
   ACTIONS 11643 [sym_kPublic]; ACTIONS 1049 [sym_kForward]; ACTIONS 1016 [sym_kStatic;
   sym_kVirtual; sym_kAbstract; sym_kDynamic; sym_kOverride; sym_kOverload; sym_kReintroduce;
   sym_kStdcall; sym_kCdecl; sym_kCppdecl; sym_kPascal; sym_kRegister; sym_kMwpascal];
   ACTIONS 1049 [sym_kExternal]; ACTIONS 11645 [sym_kMessage]; ACTIONS 11647 [sym_kDeprecated];
   ACTIONS 1016 [sym_kExperimental; sym_kPlatform; sym_kUnimplemented; sym_kCvar];
   ACTIONS 11649 [sym_kExport]; ACTIONS 1016 [sym_kFar; sym_kNear; sym_kSafecall; sym_kAssembler;
   sym_kNostackframe; sym_kInterrupt; sym_kNoreturn; sym_kIocheck; sym_kLocal; sym_kHardfloat;
   sym_kSoftfloat; sym_kMs_abi_default; sym_kMs_abi_cdecl; sym_kSaveregisters;
   sym_kSysv_abi_default; sym_kSysv_abi_cdecl; sym_kVectorcall; sym_kVarargs; sym_kWinapi];
   ACTIONS 11651 [sym_kAlias]; ACTIONS 1049 [sym_kClass; sym_kConst; sym_kConstructor;
   sym_kDestructor; sym_kEnd; sym_kExports; sym_kFinalization; sym_kFunction;
   sym_kImplementation; sym_kInitialization]; ACTIONS 1016 [sym_kInline];
   ACTIONS 1049 [sym_kInterface; sym_kLabel; sym_kProcedure; sym_kProperty; sym_kResourcestring;
   sym_kThreadvar; sym_kType; sym_kUses; sym_kVar]].

(** State 1529. *)
Definition ts_parse_table_1529 : parse_row :=
  [STATE 2854 [sym__ppIf]; STATE 2172 [sym__procAttributeNoExt];
   STATE 2187 [sym__procAttributesPp]; STATE 15605 [sym_procAttribute];
   STATE 1531 [aux_sym__declProc_repeat1]; ACTIONS 11817 [anon_sym_LBRACK];
   ACTIONS 1087 [aux_sym_ppUsesBlock_token1]; ACTIONS 3 [sym__space];
   ACTIONS 5 [sym_ppDirective]; ACTIONS 3 [sym_comment]; ACTIONS 1016 [sym_kDefault;
   sym_kNodefault]; ACTIONS 11641 [sym_kDispId]; ACTIONS 1080 [sym_kGeneric; sym_kOperator];
   ACTIONS 11643 [sym_kPublic]; ACTIONS 1080 [sym_kForward]; ACTIONS 1016 [sym_kStatic;
   sym_kVirtual; sym_kAbstract; sym_kDynamic; sym_kOverride; sym_kOverload; sym_kReintroduce;
   sym_kStdcall; sym_kCdecl; sym_kCppdecl; sym_kPascal; sym_kRegister; sym_kMwpascal];
   ACTIONS 1080 [sym_kExternal]; ACTIONS 11645 [sym_kMessage]; ACTIONS 11647 [sym_kDeprecated];
   ACTIONS 1016 [sym_kExperimental; sym_kPlatform; sym_kUnimplemented; sym_kCvar];
   ACTIONS 11649 [sym_kExport]; ACTIONS 1016 [sym_kFar; sym_kNear; sym_kSafecall; sym_kAssembler;
   sym_kNostackframe; sym_kInterrupt; sym_kNoreturn; sym_kIocheck; sym_kLocal; sym_kHardfloat;
   sym_kSoftfloat; sym_kMs_abi_default; sym_kMs_abi_cdecl; sym_kSaveregisters;
   sym_kSysv_abi_default; sym_kSysv_abi_cdecl; sym_kVectorcall; sym_kVarargs; sym_kWinapi];
   ACTIONS 11651 [sym_kAlias]; ACTIONS 1080 [sym_kClass; sym_kConst; sym_kConstructor;
   sym_kDestructor; sym_kEnd; sym_kExports; sym_kFinalization; sym_kFunction;
   sym_kImplementation; sym_kInitialization]; ACTIONS 1016 [sym_kInline];
   ACTIONS 1080 [sym_kInterface; sym_kLabel; sym_kProcedure; sym_kProperty; sym_kResourcestring;
   sym_kThreadvar; sym_kType; sym_kUses; sym_kVar]].

(** State 1530. *)
Definition ts_parse_table_1530 : parse_row :=
  [STATE 2854 [sym__ppIf]; STATE 2172 [sym__procAttributeNoExt];
   STATE 2187 [sym__procAttributesPp]; STATE 15605 [sym_procAttribute];
   STATE 1532 [aux_sym__declProc_repeat1]; ACTIONS 11820 [anon_sym_LBRACK];
   ACTIONS 1118 [aux_sym_ppUsesBlock_token1]; ACTIONS 3 [sym__space];
   ACTIONS 5 [sym_ppDirective]; ACTIONS 3 [sym_comment]; ACTIONS 1016 [sym_kDefault;
   sym_kNodefault]; ACTIONS 11641 [sym_kDispId]; ACTIONS 1111 [sym_kGeneric; sym_kOperator];
   ACTIONS 11643 [sym_kPublic]; ACTIONS 1111 [sym_kForward]; ACTIONS 1016 [sym_kStatic;
   sym_kVirtual; sym_kAbstract; sym_kDynamic; sym_kOverride; sym_kOverload; sym_kReintroduce;
   sym_kStdcall; sym_kCdecl; sym_kCppdecl; sym_kPascal; sym_kRegister; sym_kMwpascal];
   ACTIONS 1111 [sym_kExternal]; ACTIONS 11645 [sym_kMessage]; ACTIONS 11647 [sym_kDeprecated];
   ACTIONS 1016 [sym_kExperimental; sym_kPlatform; sym_kUnimplemented; sym_kCvar];
   ACTIONS 11649 [sym_kExport]; ACTIONS 1016 [sym_kFar; sym_kNear; sym_kSafecall; sym_kAssembler;
   sym_kNostackframe; sym_kInterrupt; sym_kNoreturn; sym_kIocheck; sym_kLocal; sym_kHardfloat;
   sym_kSoftfloat; sym_kMs_abi_default; sym_kMs_abi_cdecl; sym_kSaveregisters;
   sym_kSysv_abi_default; sym_kSysv_abi_cdecl; sym_kVectorcall; sym_kVarargs; sym_kWinapi];
   ACTIONS 11651 [sym_kAlias]; ACTIONS 1111 [sym_kClass; sym_kConst; sym_kConstructor;
   sym_kDestructor; sym_kEnd; sym_kExports; sym_kFinalization; sym_kFunction;
   sym_kImplementation; sym_kInitialization]; ACTIONS 1016 [sym_kInline];
   ACTIONS 1111 [sym_kInterface; sym_kLabel; sym_kProcedure; sym_kProperty; sym_kResourcestring;
   sym_kThreadvar; sym_kType; sym_kUses; sym_kVar]].

(** State 1531. *)
Definition ts_parse_table_1531 : parse_row :=
  [STATE 2854 [sym__ppIf]; STATE 2172 [sym__procAttributeNoExt];
   STATE 2187 [sym__procAttributesPp]; STATE 15605 [sym_procAttribute];
   STATE 1532 [aux_sym__declProc_repeat1]; ACTIONS 11823 [anon_sym_LBRACK];
   ACTIONS 1149 [aux_sym_ppUsesBlock_token1]; ACTIONS 3 [sym__space];
   ACTIONS 5 [sym_ppDirective]; ACTIONS 3 [sym_comment]; ACTIONS 1016 [sym_kDefault;
   sym_kNodefault]; ACTIONS 11641 [sym_kDispId]; ACTIONS 1142 [sym_kGeneric; sym_kOperator];
   ACTIONS 11643 [sym_kPublic]; ACTIONS 1142 [sym_kForward]; ACTIONS 1016 [sym_kStatic;
   sym_kVirtual; sym_kAbstract; sym_kDynamic; sym_kOverride; sym_kOverload; sym_kReintroduce;
   sym_kStdcall; sym_kCdecl; sym_kCppdecl; sym_kPascal; sym_kRegister; sym_kMwpascal];
   ACTIONS 1142 [sym_kExternal]; ACTIONS 11645 [sym_kMessage]; ACTIONS 11647 [sym_kDeprecated];
   ACTIONS 1016 [sym_kExperimental; sym_kPlatform; sym_kUnimplemented; sym_kCvar];
   ACTIONS 11649 [sym_kExport]; ACTIONS 1016 [sym_kFar; sym_kNear; sym_kSafecall; sym_kAssembler;
   sym_kNostackframe; sym_kInterrupt; sym_kNoreturn; sym_kIocheck; sym_kLocal; sym_kHardfloat;
   sym_kSoftfloat; sym_kMs_abi_default; sym_kMs_abi_cdecl; sym_kSaveregisters;
   sym_kSysv_abi_default; sym_kSysv_abi_cdecl; sym_kVectorcall; sym_kVarargs; sym_kWinapi];
   ACTIONS 11651 [sym_kAlias]; ACTIONS 1142 [sym_kClass; sym_kConst; sym_kConstructor;
   sym_kDestructor; sym_kEnd; sym_kExports; sym_kFinalization; sym_kFunction;
   sym_kImplementation; sym_kInitialization]; ACTIONS 1016 [sym_kInline];
   ACTIONS 1142 [sym_kInterface; sym_kLabel; sym_kProcedure; sym_kProperty; sym_kResourcestring;
   sym_kThreadvar; sym_kType; sym_kUses; sym_kVar]].

(** State 1532. *)
Definition ts_parse_table_1532 : parse_row :=
  [STATE 2854 [sym__ppIf]; STATE 2172 [sym__procAttributeNoExt];
   STATE 2187 [sym__procAttributesPp]; STATE 15605 [sym_procAttribute];
   STATE 1532 [aux_sym__declProc_repeat1]; ACTIONS 11826 [anon_sym_LBRACK];
   ACTIONS 1180 [aux_sym_ppUsesBlock_token1]; ACTIONS 3 [sym__space];
   ACTIONS 5 [sym_ppDirective]; ACTIONS 3 [sym_comment]; ACTIONS 1183 [sym_kDefault;
   sym_kNodefault]; ACTIONS 1186 [sym_kDispId]; ACTIONS 1173 [sym_kGeneric; sym_kOperator];
   ACTIONS 1189 [sym_kPublic]; ACTIONS 1173 [sym_kForward]; ACTIONS 1183 [sym_kStatic;
   sym_kVirtual; sym_kAbstract; sym_kDynamic; sym_kOverride; sym_kOverload; sym_kReintroduce;
   sym_kStdcall; sym_kCdecl; sym_kCppdecl; sym_kPascal; sym_kRegister; sym_kMwpascal];
   ACTIONS 1173 [sym_kExternal]; ACTIONS 1192 [sym_kMessage]; ACTIONS 1195 [sym_kDeprecated];
   ACTIONS 1183 [sym_kExperimental; sym_kPlatform; sym_kUnimplemented; sym_kCvar];
   ACTIONS 1198 [sym_kExport]; ACTIONS 1183 [sym_kFar; sym_kNear; sym_kSafecall; sym_kAssembler;
   sym_kNostackframe; sym_kInterrupt; sym_kNoreturn; sym_kIocheck; sym_kLocal; sym_kHardfloat;
   sym_kSoftfloat; sym_kMs_abi_default; sym_kMs_abi_cdecl; sym_kSaveregisters;
   sym_kSysv_abi_default; sym_kSysv_abi_cdecl; sym_kVectorcall; sym_kVarargs; sym_kWinapi];
   ACTIONS 1201 [sym_kAlias]; ACTIONS 1173 [sym_kClass; sym_kConst; sym_kConstructor;
   sym_kDestructor; sym_kEnd; sym_kExports; sym_kFinalization; sym_kFunction;
   sym_kImplementation; sym_kInitialization]; ACTIONS 1183 [sym_kInline];
   ACTIONS 1173 [sym_kInterface; sym_kLabel; sym_kProcedure; sym_kProperty; sym_kResourcestring;
   sym_kThreadvar; sym_kType; sym_kUses; sym_kVar]].

(** State 1533. *)
Definition ts_parse_table_1533 : parse_row :=
  [STATE 34 [sym__ppIf]; STATE 1535 [sym_ppBlock; sym_declVar]; STATE 5446 [sym_rttiAttributes];
   STATE 1535 [aux_sym_declVars_repeat1]; STATE 5447 [aux_sym_declVar_repeat1];
   STATE 4094 [aux_sym_rttiAttributes_repeat2]; ACTIONS 3368 [anon_sym_LBRACK];
   ACTIONS 3373 [aux_sym_ppUsesBlock_token1]; ACTIONS 3 [sym__space];
   ACTIONS 5 [sym_ppDirective]; ACTIONS 3 [sym_comment]; ACTIONS 11829 [sym_identifier];
   ACTIONS 11831 [sym_kDefault; sym_kNodefault; sym_kDispId]; ACTIONS 3366 [sym_kGeneric];
   ACTIONS 11833 [sym_kOperator]; ACTIONS 3366 [sym_kPublished]; ACTIONS 11833 [sym_kPublic];
   ACTIONS 3366 [sym_kProtected; sym_kPrivate; sym_kStrict; sym_kRequired; sym_kOptional];
   ACTIONS 11831 [sym_kStatic; sym_kVirtual; sym_kAbstract; sym_kDynamic; sym_kOverride;
   sym_kOverload; sym_kReintroduce; sym_kStdcall; sym_kCdecl; sym_kCppdecl; sym_kPascal;
   sym_kRegister; sym_kMwpascal; sym_kMessage; sym_kDeprecated; sym_kExperimental; sym_kPlatform;
   sym_kUnimplemented; sym_kCvar; sym_kExport; sym_kFar; sym_kNear; sym_kSafecall;
   sym_kAssembler; sym_kNostackframe; sym_kInterrupt; sym_kNoreturn; sym_kIocheck; sym_kLocal;
   sym_kHardfloat; sym_kSoftfloat; sym_kMs_abi_default; sym_kMs_abi_cdecl; sym_kSaveregisters;
   sym_kSysv_abi_default; sym_kSysv_abi_cdecl; sym_kVectorcall; sym_kVarargs; sym_kWinapi;
   sym_kAlias]; ACTIONS 3366 [sym_kCase; sym_kClass; sym_kConst; sym_kConstructor;
   sym_kDestructor; sym_kEnd; sym_kFunction; sym_kProcedure; sym_kProperty; sym_kResourcestring;
   sym_kThreadvar; sym_kType; sym_kVar]].

(** State 1534. *)
Definition ts_parse_table_1534 : parse_row :=
  [STATE 34 [sym__ppIf]; STATE 1536 [sym_ppBlock; sym_declVar]; STATE 5446 [sym_rttiAttributes];
   STATE 1536 [aux_sym_declVars_repeat1]; STATE 5447 [aux_sym_declVar_repeat1];
   STATE 4094 [aux_sym_rttiAttributes_repeat2]; ACTIONS 3633 [anon_sym_LBRACK];
   ACTIONS 3638 [aux_sym_ppUsesBlock_token1]; ACTIONS 3 [sym__space];
   ACTIONS 5 [sym_ppDirective]; ACTIONS 3 [sym_comment]; ACTIONS 11829 [sym_identifier];
   ACTIONS 11831 [sym_kDefault; sym_kNodefault; sym_kDispId]; ACTIONS 3631 [sym_kGeneric];
   ACTIONS 11836 [sym_kOperator]; ACTIONS 3631 [sym_kPublished]; ACTIONS 11836 [sym_kPublic];
   ACTIONS 3631 [sym_kProtected; sym_kPrivate; sym_kStrict; sym_kRequired; sym_kOptional];
   ACTIONS 11831 [sym_kStatic; sym_kVirtual; sym_kAbstract; sym_kDynamic; sym_kOverride;
   sym_kOverload; sym_kReintroduce; sym_kStdcall; sym_kCdecl; sym_kCppdecl; sym_kPascal;
   sym_kRegister; sym_kMwpascal; sym_kMessage; sym_kDeprecated; sym_kExperimental; sym_kPlatform;
   sym_kUnimplemented; sym_kCvar; sym_kExport; sym_kFar; sym_kNear; sym_kSafecall;
   sym_kAssembler; sym_kNostackframe; sym_kInterrupt; sym_kNoreturn; sym_kIocheck; sym_kLocal;
   sym_kHardfloat; sym_kSoftfloat; sym_kMs_abi_default; sym_kMs_abi_cdecl; sym_kSaveregisters;
   sym_kSysv_abi_default; sym_kSysv_abi_cdecl; sym_kVectorcall; sym_kVarargs; sym_kWinapi;
   sym_kAlias]; ACTIONS 3631 [sym_kCase; sym_kClass; sym_kConst; sym_kConstructor;
   sym_kDestructor; sym_kEnd; sym_kFunction; sym_kProcedure; sym_kProperty; sym_kResourcestring;
   sym_kThreadvar; sym_kType; sym_kVar]].

(** State 1535. *)
Definition ts_parse_table_1535 : parse_row :=
  [STATE 34 [sym__ppIf]; STATE 1537 [sym_ppBlock; sym_declVar]; STATE 5446 [sym_rttiAttributes];
   STATE 1537 [aux_sym_declVars_repeat1]; STATE 5447 [aux_sym_declVar_repeat1];
   STATE 4094 [aux_sym_rttiAttributes_repeat2]; ACTIONS 3633 [anon_sym_LBRACK];
   ACTIONS 3638 [aux_sym_ppUsesBlock_token1]; ACTIONS 3 [sym__space];
   ACTIONS 5 [sym_ppDirective]; ACTIONS 3 [sym_comment]; ACTIONS 11829 [sym_identifier];
   ACTIONS 11831 [sym_kDefault; sym_kNodefault; sym_kDispId]; ACTIONS 3631 [sym_kGeneric];
   ACTIONS 11836 [sym_kOperator]; ACTIONS 3631 [sym_kPublished]; ACTIONS 11836 [sym_kPublic];
   ACTIONS 3631 [sym_kProtected; sym_kPrivate; sym_kStrict; sym_kRequired; sym_kOptional];
   ACTIONS 11831 [sym_kStatic; sym_kVirtual; sym_kAbstract; sym_kDynamic; sym_kOverride;
   sym_kOverload; sym_kReintroduce; sym_kStdcall; sym_kCdecl; sym_kCppdecl; sym_kPascal;
   sym_kRegister; sym_kMwpascal; sym_kMessage; sym_kDeprecated; sym_kExperimental; sym_kPlatform;
   sym_kUnimplemented; sym_kCvar; sym_kExport; sym_kFar; sym_kNear; sym_kSafecall;
   sym_kAssembler; sym_kNostackframe; sym_kInterrupt; sym_kNoreturn; sym_kIocheck; sym_kLocal;
   sym_kHardfloat; sym_kSoftfloat; sym_kMs_abi_default; sym_kMs_abi_cdecl; sym_kSaveregisters;
   sym_kSysv_abi_default; sym_kSysv_abi_cdecl; sym_kVectorcall; sym_kVarargs; sym_kWinapi;
   sym_kAlias]; ACTIONS 3631 [sym_kCase; sym_kClass; sym_kConst; sym_kConstructor;
   sym_kDestructor; sym_kEnd; sym_kFunction; sym_kProcedure; sym_kProperty; sym_kResourcestring;
   sym_kThreadvar; sym_kType; sym_kVar]].

(** State 1536. *)
Definition ts_parse_table_1536 : parse_row :=
  [STATE 34 [sym__ppIf]; STATE 1537 [sym_ppBlock; sym_declVar]; STATE 5446 [sym_rttiAttributes];
   STATE 1537 [aux_sym_declVars_repeat1]; STATE 5447 [aux_sym_declVar_repeat1];
   STATE 4094 [aux_sym_rttiAttributes_repeat2]; ACTIONS 3671 [anon_sym_LBRACK];
   ACTIONS 3676 [aux_sym_ppUsesBlock_token1]; ACTIONS 3 [sym__space];
   ACTIONS 5 [sym_ppDirective]; ACTIONS 3 [sym_comment]; ACTIONS 11829 [sym_identifier];
   ACTIONS 11831 [sym_kDefault; sym_kNodefault; sym_kDispId]; ACTIONS 3669 [sym_kGeneric];
   ACTIONS 11839 [sym_kOperator]; ACTIONS 3669 [sym_kPublished]; ACTIONS 11839 [sym_kPublic];
   ACTIONS 3669 [sym_kProtected; sym_kPrivate; sym_kStrict; sym_kRequired; sym_kOptional];
   ACTIONS 11831 [sym_kStatic; sym_kVirtual; sym_kAbstract; sym_kDynamic; sym_kOverride;
   sym_kOverload; sym_kReintroduce; sym_kStdcall; sym_kCdecl; sym_kCppdecl; sym_kPascal;
   sym_kRegister; sym_kMwpascal; sym_kMessage; sym_kDeprecated; sym_kExperimental; sym_kPlatform;
   sym_kUnimplemented; sym_kCvar; sym_kExport; sym_kFar; sym_kNear; sym_kSafecall;
   sym_kAssembler; sym_kNostackframe; sym_kInterrupt; sym_kNoreturn; sym_kIocheck; sym_kLocal;
   sym_kHardfloat; sym_kSoftfloat; sym_kMs_abi_default; sym_kMs_abi_cdecl; sym_kSaveregisters;
   sym_kSysv_abi_default; sym_kSysv_abi_cdecl; sym_kVectorcall; sym_kVarargs; sym_kWinapi;
   sym_kAlias]; ACTIONS 3669 [sym_kCase; sym_kClass; sym_kConst; sym_kConstructor;
   sym_kDestructor; sym_kEnd; sym_kFunction; sym_kProcedure; sym_kProperty; sym_kResourcestring;
   sym_kThreadvar; sym_kType; sym_kVar]].

(** State 1537. *)
Definition ts_parse_table_1537 : parse_row :=
  [STATE 34 [sym__ppIf]; STATE 1537 [sym_ppBlock; sym_declVar]; STATE 5446 [sym_rttiAttributes];
   STATE 1537 [aux_sym_declVars_repeat1]; STATE 5447 [aux_sym_declVar_repeat1];
   STATE 4094 [aux_sym_rttiAttributes_repeat2]; ACTIONS 3695 [anon_sym_LBRACK];
   ACTIONS 3700 [aux_sym_ppUsesBlock_token1]; ACTIONS 3 [sym__space];
   ACTIONS 5 [sym_ppDirective]; ACTIONS 3 [sym_comment]; ACTIONS 11842 [sym_identifier];
   ACTIONS 11845 [sym_kDefault; sym_kNodefault; sym_kDispId]; ACTIONS 3693 [sym_kGeneric];
   ACTIONS 11845 [sym_kOperator]; ACTIONS 3693 [sym_kPublished]; ACTIONS 11845 [sym_kPublic];
   ACTIONS 3693 [sym_kProtected; sym_kPrivate; sym_kStrict; sym_kRequired; sym_kOptional];
   ACTIONS 11845 [sym_kStatic; sym_kVirtual; sym_kAbstract; sym_kDynamic; sym_kOverride;
   sym_kOverload; sym_kReintroduce; sym_kStdcall; sym_kCdecl; sym_kCppdecl; sym_kPascal;
   sym_kRegister; sym_kMwpascal; sym_kMessage; sym_kDeprecated; sym_kExperimental; sym_kPlatform;
   sym_kUnimplemented; sym_kCvar; sym_kExport; sym_kFar; sym_kNear; sym_kSafecall;
   sym_kAssembler; sym_kNostackframe; sym_kInterrupt; sym_kNoreturn; sym_kIocheck; sym_kLocal;
   sym_kHardfloat; sym_kSoftfloat; sym_kMs_abi_default; sym_kMs_abi_cdecl; sym_kSaveregisters;
   sym_kSysv_abi_default; sym_kSysv_abi_cdecl; sym_kVectorcall; sym_kVarargs; sym_kWinapi;
   sym_kAlias]; ACTIONS 3693 [sym_kCase; sym_kClass; sym_kConst; sym_kConstructor;
   sym_kDestructor; sym_kEnd; sym_kFunction; sym_kProcedure; sym_kProperty; sym_kResourcestring;
   sym_kThreadvar; sym_kType; sym_kVar]].

(** State 1538. *)
Definition ts_parse_table_1538 : parse_row :=
  [STATE 42 [sym__ppIf]; STATE 1504 [sym_ppBlock; sym_declVar]; STATE 5457 [sym_rttiAttributes];
   STATE 1504 [aux_sym_declVars_repeat1]; STATE 5458 [aux_sym_declVar_repeat1];
   STATE 4094 [aux_sym_rttiAttributes_repeat2]; ACTIONS 3368 [anon_sym_LBRACK];
   ACTIONS 3373 [aux_sym_ppUsesBlock_token1]; ACTIONS 3 [sym__space];
   ACTIONS 5 [sym_ppDirective]; ACTIONS 3 [sym_comment]; ACTIONS 11653 [sym_identifier];
   ACTIONS 11655 [sym_kDefault; sym_kNodefault; sym_kDispId]; ACTIONS 3366 [sym_kGeneric];
   ACTIONS 11848 [sym_kOperator]; ACTIONS 11655 [sym_kPublic; sym_kStatic; sym_kVirtual;
   sym_kAbstract; sym_kDynamic; sym_kOverride; sym_kOverload; sym_kReintroduce; sym_kStdcall;
   sym_kCdecl; sym_kCppdecl; sym_kPascal; sym_kRegister; sym_kMwpascal; sym_kMessage;
   sym_kDeprecated; sym_kExperimental; sym_kPlatform; sym_kUnimplemented; sym_kCvar; sym_kExport;
   sym_kFar; sym_kNear; sym_kSafecall; sym_kAssembler; sym_kNostackframe; sym_kInterrupt;
   sym_kNoreturn; sym_kIocheck; sym_kLocal; sym_kHardfloat; sym_kSoftfloat; sym_kMs_abi_default;
   sym_kMs_abi_cdecl; sym_kSaveregisters; sym_kSysv_abi_default; sym_kSysv_abi_cdecl;
   sym_kVectorcall; sym_kVarargs; sym_kWinapi; sym_kAlias]; ACTIONS 3366 [sym_kClass; sym_kConst;
   sym_kConstructor; sym_kDestructor; sym_kEnd; sym_kExports; sym_kFinalization; sym_kFunction;
   sym_kImplementation; sym_kInitialization; sym_kInterface; sym_kLabel; sym_kProcedure;
   sym_kProperty; sym_kResourcestring; sym_kThreadvar; sym_kType; sym_kUses; sym_kVar]].

(** State 1539. *)
Definition ts_parse_table_1539 : parse_row :=
  [STATE 2854 [sym__ppIf]; STATE 2172 [sym__procAttributeNoExt];
   STATE 2187 [sym__procAttributesPp]; STATE 15605 [sym_procAttribute];
   STATE 1532 [aux_sym__declProc_repeat1]; ACTIONS 11851 [anon_sym_LBRACK];
   ACTIONS 2280 [aux_sym_ppUsesBlock_token1]; ACTIONS 3 [sym__space];
   ACTIONS 5 [sym_ppDirective]; ACTIONS 3 [sym_comment]; ACTIONS 1016 [sym_kDefault;
   sym_kNodefault]; ACTIONS 11641 [sym_kDispId]; ACTIONS 2273 [sym_kGeneric; sym_kOperator];
   ACTIONS 11643 [sym_kPublic]; ACTIONS 2273 [sym_kForward]; ACTIONS 1016 [sym_kStatic;
   sym_kVirtual; sym_kAbstract; sym_kDynamic; sym_kOverride; sym_kOverload; sym_kReintroduce;
   sym_kStdcall; sym_kCdecl; sym_kCppdecl; sym_kPascal; sym_kRegister; sym_kMwpascal];
   ACTIONS 2273 [sym_kExternal]; ACTIONS 11645 [sym_kMessage]; ACTIONS 11647 [sym_kDeprecated];
   ACTIONS 1016 [sym_kExperimental; sym_kPlatform; sym_kUnimplemented; sym_kCvar];
   ACTIONS 11649 [sym_kExport]; ACTIONS 1016 [sym_kFar; sym_kNear; sym_kSafecall; sym_kAssembler;
   sym_kNostackframe; sym_kInterrupt; sym_kNoreturn; sym_kIocheck; sym_kLocal; sym_kHardfloat;
   sym_kSoftfloat; sym_kMs_abi_default; sym_kMs_abi_cdecl; sym_kSaveregisters;
   sym_kSysv_abi_default; sym_kSysv_abi_cdecl; sym_kVectorcall; sym_kVarargs; sym_kWinapi];
   ACTIONS 11651 [sym_kAlias]; ACTIONS 2273 [sym_kClass; sym_kConst; sym_kConstructor;
   sym_kDestructor; sym_kEnd; sym_kExports; sym_kFinalization; sym_kFunction;
   sym_kImplementation; sym_kInitialization]; ACTIONS 1016 [sym_kInline];
   ACTIONS 2273 [sym_kInterface; sym_kLabel; sym_kProcedure; sym_kProperty; sym_kResourcestring;
   sym_kThreadvar; sym_kType; sym_kUses; sym_kVar]].

(** State 1540. *)
Definition ts_parse_table_1540 : parse_row :=
  [STATE 2251 [sym__procAttribute]; STATE 15882 [sym_procAttribute];
   STATE 1669 [sym_procExternal; aux_sym_declVar_repeat2]; ACTIONS 11854 [anon_sym_LBRACK];
   ACTIONS 7177 [aux_sym_ppUsesBlock_token1]; ACTIONS 3 [sym__space];
   ACTIONS 5 [sym_ppDirective]; ACTIONS 3 [sym_comment]; ACTIONS 7177 [sym_identifier];
   ACTIONS 7184 [sym_kDefault; sym_kNodefault]; ACTIONS 7187 [sym_kDispId];
   ACTIONS 7177 [sym_kGeneric; sym_kOperator; sym_kPublished]; ACTIONS 7190 [sym_kPublic];
   ACTIONS 7177 [sym_kProtected; sym_kPrivate; sym_kStrict; sym_kRequired; sym_kOptional];
   ACTIONS 7184 [sym_kStatic; sym_kVirtual; sym_kAbstract; sym_kDynamic; sym_kOverride;
   sym_kOverload; sym_kReintroduce; sym_kStdcall; sym_kCdecl; sym_kCppdecl; sym_kPascal;
   sym_kRegister; sym_kMwpascal]; ACTIONS 11857 [sym_kExternal]; ACTIONS 7193 [sym_kMessage];
   ACTIONS 7196 [sym_kDeprecated]; ACTIONS 7184 [sym_kExperimental; sym_kPlatform;
   sym_kUnimplemented; sym_kCvar]; ACTIONS 7199 [sym_kExport]; ACTIONS 7184 [sym_kFar; sym_kNear;
   sym_kSafecall; sym_kAssembler; sym_kNostackframe; sym_kInterrupt; sym_kNoreturn; sym_kIocheck;
   sym_kLocal; sym_kHardfloat; sym_kSoftfloat; sym_kMs_abi_default; sym_kMs_abi_cdecl;
   sym_kSaveregisters; sym_kSysv_abi_default; sym_kSysv_abi_cdecl; sym_kVectorcall; sym_kVarargs;
   sym_kWinapi]; ACTIONS 7202 [sym_kAlias]; ACTIONS 7177 [sym_kCase; sym_kClass; sym_kConst;
   sym_kConstructor; sym_kDestructor; sym_kEnd; sym_kFunction]; ACTIONS 1016 [sym_kInline];
   ACTIONS 7177 [sym_kProcedure; sym_kProperty; sym_kResourcestring; sym_kThreadvar; sym_kType;
   sym_kVar]].

(** State 1541. *)
Definition ts_parse_table_1541 : parse_row :=
  [STATE 2265 [sym__procAttribute]; STATE 14480 [sym_procAttribute];
   STATE 1564 [sym_procExternal; aux_sym_declVar_repeat2]; ACTIONS 11859 [anon_sym_LBRACK];
   ACTIONS 6677 [aux_sym_ppUsesBlock_token1]; ACTIONS 3 [sym__space];
   ACTIONS 5 [sym_ppDirective]; ACTIONS 3 [sym_comment]; ACTIONS 6677 [sym_identifier];
   ACTIONS 6684 [sym_kDefault; sym_kNodefault]; ACTIONS 6687 [sym_kDispId];
   ACTIONS 6677 [sym_kGeneric; sym_kOperator]; ACTIONS 6690 [sym_kPublic];
   ACTIONS 6684 [sym_kStatic; sym_kVirtual; sym_kAbstract; sym_kDynamic; sym_kOverride;
   sym_kOverload; sym_kReintroduce; sym_kStdcall; sym_kCdecl; sym_kCppdecl; sym_kPascal;
   sym_kRegister; sym_kMwpascal]; ACTIONS 11862 [sym_kExternal]; ACTIONS 6693 [sym_kMessage];
   ACTIONS 6696 [sym_kDeprecated]; ACTIONS 6684 [sym_kExperimental; sym_kPlatform;
   sym_kUnimplemented; sym_kCvar]; ACTIONS 6699 [sym_kExport]; ACTIONS 6684 [sym_kFar; sym_kNear;
   sym_kSafecall; sym_kAssembler; sym_kNostackframe; sym_kInterrupt; sym_kNoreturn; sym_kIocheck;
   sym_kLocal; sym_kHardfloat; sym_kSoftfloat; sym_kMs_abi_default; sym_kMs_abi_cdecl;
   sym_kSaveregisters; sym_kSysv_abi_default; sym_kSysv_abi_cdecl; sym_kVectorcall; sym_kVarargs;
   sym_kWinapi]; ACTIONS 6702 [sym_kAlias]; ACTIONS 6677 [sym_kClass; sym_kConst;
   sym_kConstructor; sym_kDestructor; sym_kEnd; sym_kExports; sym_kFinalization; sym_kFunction;
   sym_kImplementation; sym_kInitialization]; ACTIONS 1016 [sym_kInline];
   ACTIONS 6677 [sym_kInterface; sym_kLabel; sym_kProcedure; sym_kProperty; sym_kResourcestring;
   sym_kThreadvar; sym_kType; sym_kUses; sym_kVar]].

(** State 1542. *)
Definition ts_parse_table_1542 : parse_row :=
  [STATE 2265 [sym__procAttribute]; STATE 14480 [sym_procAttribute];
   STATE 1683 [sym_procExternal; aux_sym_declVar_repeat2]; ACTIONS 11864 [anon_sym_LBRACK];
   ACTIONS 6736 [aux_sym_ppUsesBlock_token1]; ACTIONS 3 [sym__space];
   ACTIONS 5 [sym_ppDirective]; ACTIONS 3 [sym_comment]; ACTIONS 6736 [sym_identifier];
   ACTIONS 6743 [sym_kDefault; sym_kNodefault]; ACTIONS 6746 [sym_kDispId];
   ACTIONS 6736 [sym_kGeneric; sym_kOperator]; ACTIONS 6749 [sym_kPublic];
   ACTIONS 6743 [sym_kStatic; sym_kVirtual; sym_kAbstract; sym_kDynamic; sym_kOverride;
   sym_kOverload; sym_kReintroduce; sym_kStdcall; sym_kCdecl; sym_kCppdecl; sym_kPascal;
   sym_kRegister; sym_kMwpascal]; ACTIONS 11862 [sym_kExternal]; ACTIONS 6752 [sym_kMessage];
   ACTIONS 6755 [sym_kDeprecated]; ACTIONS 6743 [sym_kExperimental; sym_kPlatform;
   sym_kUnimplemented; sym_kCvar]; ACTIONS 6758 [sym_kExport]; ACTIONS 6743 [sym_kFar; sym_kNear;
   sym_kSafecall; sym_kAssembler; sym_kNostackframe; sym_kInterrupt; sym_kNoreturn; sym_kIocheck;
   sym_kLocal; sym_kHardfloat; sym_kSoftfloat; sym_kMs_abi_default; sym_kMs_abi_cdecl;
   sym_kSaveregisters; sym_kSysv_abi_default; sym_kSysv_abi_cdecl; sym_kVectorcall; sym_kVarargs;
   sym_kWinapi]; ACTIONS 6761 [sym_kAlias]; ACTIONS 6736 [sym_kClass; sym_kConst;
   sym_kConstructor; sym_kDestructor; sym_kEnd; sym_kExports; sym_kFinalization; sym_kFunction;
   sym_kImplementation; sym_kInitialization]; ACTIONS 1016 [sym_kInline];
   ACTIONS 6736 [sym_kInterface; sym_kLabel; sym_kProcedure; sym_kProperty; sym_kResourcestring;
   sym_kThreadvar; sym_kType; sym_kUses; sym_kVar]].

(** State 1543. *)
Definition ts_parse_table_1543 : parse_row :=
  [STATE 2265 [sym__procAttribute]; STATE 14480 [sym_procAttribute];
   STATE 1683 [sym_procExternal; aux_sym_declVar_repeat2]; ACTIONS 11867 [anon_sym_LBRACK];
   ACTIONS 6767 [aux_sym_ppUsesBlock_token1]; ACTIONS 3 [sym__space];
   ACTIONS 5 [sym_ppDirective]; ACTIONS 3 [sym_comment]; ACTIONS 6767 [sym_identifier];
   ACTIONS 6774 [sym_kDefault; sym_kNodefault]; ACTIONS 6777 [sym_kDispId];
   ACTIONS 6767 [sym_kGeneric; sym_kOperator]; ACTIONS 6780 [sym_kPublic];
   ACTIONS 6774 [sym_kStatic; sym_kVirtual; sym_kAbstract; sym_kDynamic; sym_kOverride;
   sym_kOverload; sym_kReintroduce; sym_kStdcall; sym_kCdecl; sym_kCppdecl; sym_kPascal;
   sym_kRegister; sym_kMwpascal]; ACTIONS 11862 [sym_kExternal]; ACTIONS 6783 [sym_kMessage];
   ACTIONS 6786 [sym_kDeprecated]; ACTIONS 6774 [sym_kExperimental; sym_kPlatform;
   sym_kUnimplemented; sym_kCvar]; ACTIONS 6789 [sym_kExport]; ACTIONS 6774 [sym_kFar; sym_kNear;
   sym_kSafecall; sym_kAssembler; sym_kNostackframe; sym_kInterrupt; sym_kNoreturn; sym_kIocheck;
   sym_kLocal; sym_kHardfloat; sym_kSoftfloat; sym_kMs_abi_default; sym_kMs_abi_cdecl;
   sym_kSaveregisters; sym_kSysv_abi_default; sym_kSysv_abi_cdecl; sym_kVectorcall; sym_kVarargs;
   sym_kWinapi]; ACTIONS 6792 [sym_kAlias]; ACTIONS 6767 [sym_kClass; sym_kConst;
   sym_kConstructor; sym_kDestructor; sym_kEnd; sym_kExports; sym_kFinalization; sym_kFunction;
   sym_kImplementation; sym_kInitialization]; ACTIONS 1016 [sym_kInline];
   ACTIONS 6767 [sym_kInterface; sym_kLabel; sym_kProcedure; sym_kProperty; sym_kResourcestring;
   sym_kThreadvar; sym_kType; sym_kUses; sym_kVar]].

(** State 1544. *)
Definition ts_parse_table_1544 : parse_row :=
  [STATE 2265 [sym__procAttribute]; STATE 14480 [sym_procAttribute];
   STATE 1566 [sym_procExternal; aux_sym_declVar_repeat2]; ACTIONS 11870 [anon_sym_LBRACK];
   ACTIONS 6823 [aux_sym_ppUsesBlock_token1]; ACTIONS 3 [sym__space];
   ACTIONS 5 [sym_ppDirective]; ACTIONS 3 [sym_comment]; ACTIONS 6823 [sym_identifier];
   ACTIONS 6830 [sym_kDefault; sym_kNodefault]; ACTIONS 6833 [sym_kDispId];
   ACTIONS 6823 [sym_kGeneric; sym_kOperator]; ACTIONS 6836 [sym_kPublic];
   ACTIONS 6830 [sym_kStatic; sym_kVirtual; sym_kAbstract; sym_kDynamic; sym_kOverride;
   sym_kOverload; sym_kReintroduce; sym_kStdcall; sym_kCdecl; sym_kCppdecl; sym_kPascal;
   sym_kRegister; sym_kMwpascal]; ACTIONS 11862 [sym_kExternal]; ACTIONS 6839 [sym_kMessage];
   ACTIONS 6842 [sym_kDeprecated]; ACTIONS 6830 [sym_kExperimental; sym_kPlatform;
   sym_kUnimplemented; sym_kCvar]; ACTIONS 6845 [sym_kExport]; ACTIONS 6830 [sym_kFar; sym_kNear;
   sym_kSafecall; sym_kAssembler; sym_kNostackframe; sym_kInterrupt; sym_kNoreturn; sym_kIocheck;
   sym_kLocal; sym_kHardfloat; sym_kSoftfloat; sym_kMs_abi_default; sym_kMs_abi_cdecl;
   sym_kSaveregisters; sym_kSysv_abi_default; sym_kSysv_abi_cdecl; sym_kVectorcall; sym_kVarargs;
   sym_kWinapi]; ACTIONS 6848 [sym_kAlias]; ACTIONS 6823 [sym_kClass; sym_kConst;
   sym_kConstructor; sym_kDestructor; sym_kEnd; sym_kExports; sym_kFinalization; sym_kFunction;
   sym_kImplementation; sym_kInitialization]; ACTIONS 1016 [sym_kInline];
   ACTIONS 6823 [sym_kInterface; sym_kLabel; sym_kProcedure; sym_kProperty; sym_kResourcestring;
   sym_kThreadvar; sym_kType; sym_kUses; sym_kVar]].

(** State 1545. *)
Definition ts_parse_table_1545 : parse_row :=
  [STATE 2265 [sym__procAttribute]; STATE 14480 [sym_procAttribute];
   STATE 1683 [sym_procExternal; aux_sym_declVar_repeat2]; ACTIONS 11873 [anon_sym_LBRACK];
   ACTIONS 6854 [aux_sym_ppUsesBlock_token1]; ACTIONS 3 [sym__space];
   ACTIONS 5 [sym_ppDirective]; ACTIONS 3 [sym_comment]; ACTIONS 6854 [sym_identifier];
   ACTIONS 6861 [sym_kDefault; sym_kNodefault]; ACTIONS 6864 [sym_kDispId];
   ACTIONS 6854 [sym_kGeneric; sym_kOperator]; ACTIONS 6867 [sym_kPublic];
   ACTIONS 6861 [sym_kStatic; sym_kVirtual; sym_kAbstract; sym_kDynamic; sym_kOverride;
   sym_kOverload; sym_kReintroduce; sym_kStdcall; sym_kCdecl; sym_kCppdecl; sym_kPascal;
   sym_kRegister; sym_kMwpascal]; ACTIONS 11862 [sym_kExternal]; ACTIONS 6870 [sym_kMessage];
   ACTIONS 6873 [sym_kDeprecated]; ACTIONS 6861 [sym_kExperimental; sym_kPlatform;
   sym_kUnimplemented; sym_kCvar]; ACTIONS 6876 [sym_kExport]; ACTIONS 6861 [sym_kFar; sym_kNear;
   sym_kSafecall; sym_kAssembler; sym_kNostackframe; sym_kInterrupt; sym_kNoreturn; sym_kIocheck;
   sym_kLocal; sym_kHardfloat; sym_kSoftfloat; sym_kMs_abi_default; sym_kMs_abi_cdecl;
   sym_kSaveregisters; sym_kSysv_abi_default; sym_kSysv_abi_cdecl; sym_kVectorcall; sym_kVarargs;
   sym_kWinapi]; ACTIONS 6879 [sym_kAlias]; ACTIONS 6854 [sym_kClass; sym_kConst;
   sym_kConstructor; sym_kDestructor; sym_kEnd; sym_kExports; sym_kFinalization; sym_kFunction;
   sym_kImplementation; sym_kInitialization]; ACTIONS 1016 [sym_kInline];
   ACTIONS 6854 [sym_kInterface; sym_kLabel; sym_kProcedure; sym_kProperty; sym_kResourcestring;
   sym_kThreadvar; sym_kType; sym_kUses; sym_kVar]].

(** State 1546. *)
Definition ts_parse_table_1546 : parse_row :=
  [STATE 2265 [sym__procAttribute]; STATE 14480 [sym_procAttribute];
   STATE 1568 [sym_procExternal; aux_sym_declVar_repeat2]; ACTIONS 11876 [anon_sym_LBRACK];
   ACTIONS 6913 [aux_sym_ppUsesBlock_token1]; ACTIONS 3 [sym__space];
   ACTIONS 5 [sym_ppDirective]; ACTIONS 3 [sym_comment]; ACTIONS 6913 [sym_identifier];
   ACTIONS 6920 [sym_kDefault; sym_kNodefault]; ACTIONS 6923 [sym_kDispId];
   ACTIONS 6913 [sym_kGeneric; sym_kOperator]; ACTIONS 6926 [sym_kPublic];
   ACTIONS 6920 [sym_kStatic; sym_kVirtual; sym_kAbstract; sym_kDynamic; sym_kOverride;
   sym_kOverload; sym_kReintroduce; sym_kStdcall; sym_kCdecl; sym_kCppdecl; sym_kPascal;
   sym_kRegister; sym_kMwpascal]; ACTIONS 11862 [sym_kExternal]; ACTIONS 6929 [sym_kMessage];
   ACTIONS 6932 [sym_kDeprecated]; ACTIONS 6920 [sym_kExperimental; sym_kPlatform;
   sym_kUnimplemented; sym_kCvar]; ACTIONS 6935 [sym_kExport]; ACTIONS 6920 [sym_kFar; sym_kNear;
   sym_kSafecall; sym_kAssembler; sym_kNostackframe; sym_kInterrupt; sym_kNoreturn; sym_kIocheck;
   sym_kLocal; sym_kHardfloat; sym_kSoftfloat; sym_kMs_abi_default; sym_kMs_abi_cdecl;
   sym_kSaveregisters; sym_kSysv_abi_default; sym_kSysv_abi_cdecl; sym_kVectorcall; sym_kVarargs;
   sym_kWinapi]; ACTIONS 6938 [sym_kAlias]; ACTIONS 6913 [sym_kClass; sym_kConst;
   sym_kConstructor; sym_kDestructor; sym_kEnd; sym_kExports; sym_kFinalization; sym_kFunction;
   sym_kImplementation; sym_kInitialization]; ACTIONS 1016 [sym_kInline];
   ACTIONS 6913 [sym_kInterface; sym_kLabel; sym_kProcedure; sym_kProperty; sym_kResourcestring;
   sym_kThreadvar; sym_kType; sym_kUses; sym_kVar]].

(** State 1547. *)
Definition ts_parse_table_1547 : parse_row :=
  [STATE 2265 [sym__procAttribute]; STATE 14480 [sym_procAttribute];
   STATE 1569 [sym_procExternal; aux_sym_declVar_repeat2]; ACTIONS 11879 [anon_sym_LBRACK];
   ACTIONS 6944 [aux_sym_ppUsesBlock_token1]; ACTIONS 3 [sym__space];
   ACTIONS 5 [sym_ppDirective]; ACTIONS 3 [sym_comment]; ACTIONS 6944 [sym_identifier];
   ACTIONS 6951 [sym_kDefault; sym_kNodefault]; ACTIONS 6954 [sym_kDispId];
   ACTIONS 6944 [sym_kGeneric; sym_kOperator]; ACTIONS 6957 [sym_kPublic];
   ACTIONS 6951 [sym_kStatic; sym_kVirtual; sym_kAbstract; sym_kDynamic; sym_kOverride;
   sym_kOverload; sym_kReintroduce; sym_kStdcall; sym_kCdecl; sym_kCppdecl; sym_kPascal;
   sym_kRegister; sym_kMwpascal]; ACTIONS 11862 [sym_kExternal]; ACTIONS 6960 [sym_kMessage];
   ACTIONS 6963 [sym_kDeprecated]; ACTIONS 6951 [sym_kExperimental; sym_kPlatform;
   sym_kUnimplemented; sym_kCvar]; ACTIONS 6966 [sym_kExport]; ACTIONS 6951 [sym_kFar; sym_kNear;
   sym_kSafecall; sym_kAssembler; sym_kNostackframe; sym_kInterrupt; sym_kNoreturn; sym_kIocheck;
   sym_kLocal; sym_kHardfloat; sym_kSoftfloat; sym_kMs_abi_default; sym_kMs_abi_cdecl;
   sym_kSaveregisters; sym_kSysv_abi_default; sym_kSysv_abi_cdecl; sym_kVectorcall; sym_kVarargs;
   sym_kWinapi]; ACTIONS 6969 [sym_kAlias]; ACTIONS 6944 [sym_kClass; sym_kConst;
   sym_kConstructor; sym_kDestructor; sym_kEnd; sym_kExports; sym_kFinalization; sym_kFunction;
   sym_kImplementation; sym_kInitialization]; ACTIONS 1016 [sym_kInline];
   ACTIONS 6944 [sym_kInterface; sym_kLabel; sym_kProcedure; sym_kProperty; sym_kResourcestring;
   sym_kThreadvar; sym_kType; sym_kUses; sym_kVar]].

(** State 1548. *)
Definition ts_parse_table_1548 : parse_row :=
  [STATE 2265 [sym__procAttribute]; STATE 14480 [sym_procAttribute];
   STATE 1571 [sym_procExternal; aux_sym_declVar_repeat2]; ACTIONS 11882 [anon_sym_LBRACK];
   ACTIONS 6972 [aux_sym_ppUsesBlock_token1]; ACTIONS 3 [sym__space];
   ACTIONS 5 [sym_ppDirective]; ACTIONS 3 [sym_comment]; ACTIONS 6972 [sym_identifier];
   ACTIONS 6979 [sym_kDefault; sym_kNodefault]; ACTIONS 6982 [sym_kDispId];
   ACTIONS 6972 [sym_kGeneric; sym_kOperator]; ACTIONS 6985 [sym_kPublic];
   ACTIONS 6979 [sym_kStatic; sym_kVirtual; sym_kAbstract; sym_kDynamic; sym_kOverride;
   sym_kOverload; sym_kReintroduce; sym_kStdcall; sym_kCdecl; sym_kCppdecl; sym_kPascal;
   sym_kRegister; sym_kMwpascal]; ACTIONS 11862 [sym_kExternal]; ACTIONS 6988 [sym_kMessage];
   ACTIONS 6991 [sym_kDeprecated]; ACTIONS 6979 [sym_kExperimental; sym_kPlatform;
   sym_kUnimplemented; sym_kCvar]; ACTIONS 6994 [sym_kExport]; ACTIONS 6979 [sym_kFar; sym_kNear;
   sym_kSafecall; sym_kAssembler; sym_kNostackframe; sym_kInterrupt; sym_kNoreturn; sym_kIocheck;
   sym_kLocal; sym_kHardfloat; sym_kSoftfloat; sym_kMs_abi_default; sym_kMs_abi_cdecl;
   sym_kSaveregisters; sym_kSysv_abi_default; sym_kSysv_abi_cdecl; sym_kVectorcall; sym_kVarargs;
   sym_kWinapi]; ACTIONS 6997 [sym_kAlias]; ACTIONS 6972 [sym_kClass; sym_kConst;
   sym_kConstructor; sym_kDestructor; sym_kEnd; sym_kExports; sym_kFinalization; sym_kFunction;
   sym_kImplementation; sym_kInitialization]; ACTIONS 1016 [sym_kInline];
   ACTIONS 6972 [sym_kInterface; sym_kLabel; sym_kProcedure; sym_kProperty; sym_kResourcestring;
   sym_kThreadvar; sym_kType; sym_kUses; sym_kVar]].

(** State 1549. *)
Definition ts_parse_table_1549 : parse_row :=
  [STATE 2265 [sym__procAttribute]; STATE 14480 [sym_procAttribute];
   STATE 1683 [sym_procExternal; aux_sym_declVar_repeat2]; ACTIONS 11885 [anon_sym_LBRACK];
   ACTIONS 7031 [aux_sym_ppUsesBlock_token1]; ACTIONS 3 [sym__space];
   ACTIONS 5 [sym_ppDirective]; ACTIONS 3 [sym_comment]; ACTIONS 7031 [sym_identifier];
   ACTIONS 7038 [sym_kDefault; sym_kNodefault]; ACTIONS 7041 [sym_kDispId];
   ACTIONS 7031 [sym_kGeneric; sym_kOperator]; ACTIONS 7044 [sym_kPublic];
   ACTIONS 7038 [sym_kStatic; sym_kVirtual; sym_kAbstract; sym_kDynamic; sym_kOverride;
   sym_kOverload; sym_kReintroduce; sym_kStdcall; sym_kCdecl; sym_kCppdecl; sym_kPascal;
   sym_kRegister; sym_kMwpascal]; ACTIONS 11862 [sym_kExternal]; ACTIONS 7047 [sym_kMessage];
   ACTIONS 7050 [sym_kDeprecated]; ACTIONS 7038 [sym_kExperimental; sym_kPlatform;
   sym_kUnimplemented; sym_kCvar]; ACTIONS 7053 [sym_kExport]; ACTIONS 7038 [sym_kFar; sym_kNear;
   sym_kSafecall; sym_kAssembler; sym_kNostackframe; sym_kInterrupt; sym_kNoreturn; sym_kIocheck;
   sym_kLocal; sym_kHardfloat; sym_kSoftfloat; sym_kMs_abi_default; sym_kMs_abi_cdecl;
   sym_kSaveregisters; sym_kSysv_abi_default; sym_kSysv_abi_cdecl; sym_kVectorcall; sym_kVarargs;
   sym_kWinapi]; ACTIONS 7056 [sym_kAlias]; ACTIONS 7031 [sym_kClass; sym_kConst;
   sym_kConstructor; sym_kDestructor; sym_kEnd; sym_kExports; sym_kFinalization; sym_kFunction;
   sym_kImplementation; sym_kInitialization]; ACTIONS 1016 [sym_kInline];
   ACTIONS 7031 [sym_kInterface; sym_kLabel; sym_kProcedure; sym_kProperty; sym_kResourcestring;
   sym_kThreadvar; sym_kType; sym_kUses; sym_kVar]].

(** State 1550. *)
Definition ts_parse_table_1550 : parse_row :=
  [STATE 2265 [sym__procAttribute]; STATE 14480 [sym_procAttribute];
   STATE 1574 [sym_procExternal; aux_sym_declVar_repeat2]; ACTIONS 11888 [anon_sym_LBRACK];
   ACTIONS 7090 [aux_sym_ppUsesBlock_token1]; ACTIONS 3 [sym__space];
   ACTIONS 5 [sym_ppDirective]; ACTIONS 3 [sym_comment]; ACTIONS 7090 [sym_identifier];
   ACTIONS 7097 [sym_kDefault; sym_kNodefault]; ACTIONS 7100 [sym_kDispId];
   ACTIONS 7090 [sym_kGeneric; sym_kOperator]; ACTIONS 7103 [sym_kPublic];
   ACTIONS 7097 [sym_kStatic; sym_kVirtual; sym_kAbstract; sym_kDynamic; sym_kOverride;
   sym_kOverload; sym_kReintroduce; sym_kStdcall; sym_kCdecl; sym_kCppdecl; sym_kPascal;
   sym_kRegister; sym_kMwpascal]; ACTIONS 11862 [sym_kExternal]; ACTIONS 7106 [sym_kMessage];
   ACTIONS 7109 [sym_kDeprecated]; ACTIONS 7097 [sym_kExperimental; sym_kPlatform;
   sym_kUnimplemented; sym_kCvar]; ACTIONS 7112 [sym_kExport]; ACTIONS 7097 [sym_kFar; sym_kNear;
   sym_kSafecall; sym_kAssembler; sym_kNostackframe; sym_kInterrupt; sym_kNoreturn; sym_kIocheck;
   sym_kLocal; sym_kHardfloat; sym_kSoftfloat; sym_kMs_abi_default; sym_kMs_abi_cdecl;
   sym_kSaveregisters; sym_kSysv_abi_default; sym_kSysv_abi_cdecl; sym_kVectorcall; sym_kVarargs;
   sym_kWinapi]; ACTIONS 7115 [sym_kAlias]; ACTIONS 7090 [sym_kClass; sym_kConst;
   sym_kConstructor; sym_kDestructor; sym_kEnd; sym_kExports; sym_kFinalization; sym_kFunction;
   sym_kImplementation; sym_kInitialization]; ACTIONS 1016 [sym_kInline];
   ACTIONS 7090 [sym_kInterface; sym_kLabel; sym_kProcedure; sym_kProperty; sym_kResourcestring;
   sym_kThreadvar; sym_kType; sym_kUses; sym_kVar]].

(** State 1551. *)
Definition ts_parse_table_1551 : parse_row :=
  [STATE 2265 [sym__procAttribute]; STATE 14480 [sym_procAttribute];
   STATE 1683 [sym_procExternal; aux_sym_declVar_repeat2]; ACTIONS 11891 [anon_sym_LBRACK];
   ACTIONS 7118 [aux_sym_ppUsesBlock_token1]; ACTIONS 3 [sym__space];
   ACTIONS 5 [sym_ppDirective]; ACTIONS 3 [sym_comment]; ACTIONS 7118 [sym_identifier];
   ACTIONS 7125 [sym_kDefault; sym_kNodefault]; ACTIONS 7128 [sym_kDispId];
   ACTIONS 7118 [sym_kGeneric; sym_kOperator]; ACTIONS 7131 [sym_kPublic];
   ACTIONS 7125 [sym_kStatic; sym_kVirtual; sym_kAbstract; sym_kDynamic; sym_kOverride;
   sym_kOverload; sym_kReintroduce; sym_kStdcall; sym_kCdecl; sym_kCppdecl; sym_kPascal;
   sym_kRegister; sym_kMwpascal]; ACTIONS 11862 [sym_kExternal]; ACTIONS 7134 [sym_kMessage];
   ACTIONS 7137 [sym_kDeprecated]; ACTIONS 7125 [sym_kExperimental; sym_kPlatform;
   sym_kUnimplemented; sym_kCvar]; ACTIONS 7140 [sym_kExport]; ACTIONS 7125 [sym_kFar; sym_kNear;
   sym_kSafecall; sym_kAssembler; sym_kNostackframe; sym_kInterrupt; sym_kNoreturn; sym_kIocheck;
   sym_kLocal; sym_kHardfloat; sym_kSoftfloat; sym_kMs_abi_default; sym_kMs_abi_cdecl;
   sym_kSaveregisters; sym_kSysv_abi_default; sym_kSysv_abi_cdecl; sym_kVectorcall; sym_kVarargs;
   sym_kWinapi]; ACTIONS 7143 [sym_kAlias]; ACTIONS 7118 [sym_kClass; sym_kConst;
   sym_kConstructor; sym_kDestructor; sym_kEnd; sym_kExports; sym_kFinalization; sym_kFunction;
   sym_kImplementation; sym_kInitialization]; ACTIONS 1016 [sym_kInline];
   ACTIONS 7118 [sym_kInterface; sym_kLabel; sym_kProcedure; sym_kProperty; sym_kResourcestring;
   sym_kThreadvar; sym_kType; sym_kUses; sym_kVar]].

(** State 1552. *)
Definition ts_parse_table_1552 : parse_row :=
  [STATE 2265 [sym__procAttribute]; STATE 14480 [sym_procAttribute];
   STATE 1576 [sym_procExternal; aux_sym_declVar_repeat2]; ACTIONS 11894 [anon_sym_LBRACK];
   ACTIONS 7177 [aux_sym_ppUsesBlock_token1]; ACTIONS 3 [sym__space];
   ACTIONS 5 [sym_ppDirective]; ACTIONS 3 [sym_comment]; ACTIONS 7177 [sym_identifier];
   ACTIONS 7184 [sym_kDefault; sym_kNodefault]; ACTIONS 7187 [sym_kDispId];
   ACTIONS 7177 [sym_kGeneric; sym_kOperator]; ACTIONS 7190 [sym_kPublic];
   ACTIONS 7184 [sym_kStatic; sym_kVirtual; sym_kAbstract; sym_kDynamic; sym_kOverride;
   sym_kOverload; sym_kReintroduce; sym_kStdcall; sym_kCdecl; sym_kCppdecl; sym_kPascal;
   sym_kRegister; sym_kMwpascal]; ACTIONS 11862 [sym_kExternal]; ACTIONS 7193 [sym_kMessage];
   ACTIONS 7196 [sym_kDeprecated]; ACTIONS 7184 [sym_kExperimental; sym_kPlatform;
   sym_kUnimplemented; sym_kCvar]; ACTIONS 7199 [sym_kExport]; ACTIONS 7184 [sym_kFar; sym_kNear;
   sym_kSafecall; sym_kAssembler; sym_kNostackframe; sym_kInterrupt; sym_kNoreturn; sym_kIocheck;
   sym_kLocal; sym_kHardfloat; sym_kSoftfloat; sym_kMs_abi_default; sym_kMs_abi_cdecl;
   sym_kSaveregisters; sym_kSysv_abi_default; sym_kSysv_abi_cdecl; sym_kVectorcall; sym_kVarargs;
   sym_kWinapi]; ACTIONS 7202 [sym_kAlias]; ACTIONS 7177 [sym_kClass; sym_kConst;
   sym_kConstructor; sym_kDestructor; sym_kEnd; sym_kExports; sym_kFinalization; sym_kFunction;
   sym_kImplementation; sym_kInitialization]; ACTIONS 1016 [sym_kInline];
   ACTIONS 7177 [sym_kInterface; sym_kLabel; sym_kProcedure; sym_kProperty; sym_kResourcestring;
   sym_kThreadvar; sym_kType; sym_kUses; sym_kVar]].

(** State 1553. *)
Definition ts_parse_table_1553 : parse_row :=
  [STATE 2251 [sym__procAttribute]; STATE 15882 [sym_procAttribute];
   STATE 1649 [sym_procExternal; aux_sym_declVar_repeat2]; ACTIONS 11897 [anon_sym_LBRACK];
   ACTIONS 5162 [aux_sym_ppUsesBlock_token1]; ACTIONS 3 [sym__space];
   ACTIONS 5 [sym_ppDirective]; ACTIONS 3 [sym_comment]; ACTIONS 5162 [sym_identifier];
   ACTIONS 5169 [sym_kDefault; sym_kNodefault]; ACTIONS 5172 [sym_kDispId];
   ACTIONS 5162 [sym_kGeneric; sym_kOperator; sym_kPublished]; ACTIONS 5175 [sym_kPublic];
   ACTIONS 5162 [sym_kProtected; sym_kPrivate; sym_kStrict; sym_kRequired; sym_kOptional];
   ACTIONS 5169 [sym_kStatic; sym_kVirtual; sym_kAbstract; sym_kDynamic; sym_kOverride;
   sym_kOverload; sym_kReintroduce; sym_kStdcall; sym_kCdecl; sym_kCppdecl; sym_kPascal;
   sym_kRegister; sym_kMwpascal]; ACTIONS 11857 [sym_kExternal]; ACTIONS 5178 [sym_kMessage];
   ACTIONS 5181 [sym_kDeprecated]; ACTIONS 5169 [sym_kExperimental; sym_kPlatform;
   sym_kUnimplemented; sym_kCvar]; ACTIONS 5184 [sym_kExport]; ACTIONS 5169 [sym_kFar; sym_kNear;
   sym_kSafecall; sym_kAssembler; sym_kNostackframe; sym_kInterrupt; sym_kNoreturn; sym_kIocheck;
   sym_kLocal; sym_kHardfloat; sym_kSoftfloat; sym_kMs_abi_default; sym_kMs_abi_cdecl;
   sym_kSaveregisters; sym_kSysv_abi_default; sym_kSysv_abi_cdecl; sym_kVectorcall; sym_kVarargs;
   sym_kWinapi]; ACTIONS 5187 [sym_kAlias]; ACTIONS 5162 [sym_kCase; sym_kClass; sym_kConst;
   sym_kConstructor; sym_kDestructor; sym_kEnd; sym_kFunction]; ACTIONS 1016 [sym_kInline];
   ACTIONS 5162 [sym_kProcedure; sym_kProperty; sym_kResourcestring; sym_kThreadvar; sym_kType;
   sym_kVar]].

(** State 1554. *)
Definition ts_parse_table_1554 : parse_row :=
  [STATE 2251 [sym__procAttribute]; STATE 15882 [sym_procAttribute];
   STATE 1649 [sym_procExternal; aux_sym_declVar_repeat2]; ACTIONS 11900 [anon_sym_LBRACK];
   ACTIONS 5249 [aux_sym_ppUsesBlock_token1]; ACTIONS 3 [sym__space];
   ACTIONS 5 [sym_ppDirective]; ACTIONS 3 [sym_comment]; ACTIONS 5249 [sym_identifier];
   ACTIONS 5256 [sym_kDefault; sym_kNodefault]; ACTIONS 5259 [sym_kDispId];
   ACTIONS 5249 [sym_kGeneric; sym_kOperator; sym_kPublished]; ACTIONS 5262 [sym_kPublic];
   ACTIONS 5249 [sym_kProtected; sym_kPrivate; sym_kStrict; sym_kRequired; sym_kOptional];
   ACTIONS 5256 [sym_kStatic; sym_kVirtual; sym_kAbstract; sym_kDynamic; sym_kOverride;
   sym_kOverload; sym_kReintroduce; sym_kStdcall; sym_kCdecl; sym_kCppdecl; sym_kPascal;
   sym_kRegister; sym_kMwpascal]; ACTIONS 11857 [sym_kExternal]; ACTIONS 5265 [sym_kMessage];
   ACTIONS 5268 [sym_kDeprecated]; ACTIONS 5256 [sym_kExperimental; sym_kPlatform;
   sym_kUnimplemented; sym_kCvar]; ACTIONS 5271 [sym_kExport]; ACTIONS 5256 [sym_kFar; sym_kNear;
   sym_kSafecall; sym_kAssembler; sym_kNostackframe; sym_kInterrupt; sym_kNoreturn; sym_kIocheck;
   sym_kLocal; sym_kHardfloat; sym_kSoftfloat; sym_kMs_abi_default; sym_kMs_abi_cdecl;
   sym_kSaveregisters; sym_kSysv_abi_default; sym_kSysv_abi_cdecl; sym_kVectorcall; sym_kVarargs;
   sym_kWinapi]; ACTIONS 5274 [sym_kAlias]; ACTIONS 5249 [sym_kCase; sym_kClass; sym_kConst;
   sym_kConstructor; sym_kDestructor; sym_kEnd; sym_kFunction]; ACTIONS 1016 [sym_kInline];
   ACTIONS 5249 [sym_kProcedure; sym_kProperty; sym_kResourcestring; sym_kThreadvar; sym_kType;
   sym_kVar]].

(** State 1555. *)
Definition ts_parse_table_1555 : parse_row :=
  [STATE 2265 [sym__procAttribute]; STATE 14480 [sym_procAttribute];
   STATE 1683 [sym_procExternal; aux_sym_declVar_repeat2]; ACTIONS 11903 [anon_sym_LBRACK];
   ACTIONS 3727 [aux_sym_ppUsesBlock_token1]; ACTIONS 3 [sym__space];
   ACTIONS 5 [sym_ppDirective]; ACTIONS 3 [sym_comment]; ACTIONS 3727 [sym_identifier];
   ACTIONS 3734 [sym_kDefault; sym_kNodefault]; ACTIONS 3737 [sym_kDispId];
   ACTIONS 3727 [sym_kGeneric; sym_kOperator]; ACTIONS 3740 [sym_kPublic];
   ACTIONS 3734 [sym_kStatic; sym_kVirtual; sym_kAbstract; sym_kDynamic; sym_kOverride;
   sym_kOverload; sym_kReintroduce; sym_kStdcall; sym_kCdecl; sym_kCppdecl; sym_kPascal;
   sym_kRegister; sym_kMwpascal]; ACTIONS 11862 [sym_kExternal]; ACTIONS 3743 [sym_kMessage];
   ACTIONS 3746 [sym_kDeprecated]; ACTIONS 3734 [sym_kExperimental; sym_kPlatform;
   sym_kUnimplemented; sym_kCvar]; ACTIONS 3749 [sym_kExport]; ACTIONS 3734 [sym_kFar; sym_kNear;
   sym_kSafecall; sym_kAssembler; sym_kNostackframe; sym_kInterrupt; sym_kNoreturn; sym_kIocheck;
   sym_kLocal; sym_kHardfloat; sym_kSoftfloat; sym_kMs_abi_default; sym_kMs_abi_cdecl;
   sym_kSaveregisters; sym_kSysv_abi_default; sym_kSysv_abi_cdecl; sym_kVectorcall; sym_kVarargs;
   sym_kWinapi]; ACTIONS 3752 [sym_kAlias]; ACTIONS 3727 [sym_kClass; sym_kConst;
   sym_kConstructor; sym_kDestructor; sym_kEnd; sym_kExports; sym_kFinalization; sym_kFunction;
   sym_kImplementation; sym_kInitialization]; ACTIONS 1016 [sym_kInline];
   ACTIONS 3727 [sym_kInterface; sym_kLabel; sym_kProcedure; sym_kProperty; sym_kResourcestring;
   sym_kThreadvar; sym_kType; sym_kUses; sym_kVar]].

(** State 1556. *)
Definition ts_parse_table_1556 : parse_row :=
  [STATE 2265 [sym__procAttribute]; STATE 14480 [sym_procAttribute];
   STATE 1542 [sym_procExternal; aux_sym_declVar_repeat2]; ACTIONS 11906 [anon_sym_LBRACK];
   ACTIONS 4478 [aux_sym_ppUsesBlock_token1]; ACTIONS 3 [sym__space];
   ACTIONS 5 [sym_ppDirective]; ACTIONS 3 [sym_comment]; ACTIONS 4478 [sym_identifier];
   ACTIONS 4485 [sym_kDefault; sym_kNodefault]; ACTIONS 4488 [sym_kDispId];
   ACTIONS 4478 [sym_kGeneric; sym_kOperator]; ACTIONS 4491 [sym_kPublic];
   ACTIONS 4485 [sym_kStatic; sym_kVirtual; sym_kAbstract; sym_kDynamic; sym_kOverride;
   sym_kOverload; sym_kReintroduce; sym_kStdcall; sym_kCdecl; sym_kCppdecl; sym_kPascal;
   sym_kRegister; sym_kMwpascal]; ACTIONS 11862 [sym_kExternal]; ACTIONS 4494 [sym_kMessage];
   ACTIONS 4497 [sym_kDeprecated]; ACTIONS 4485 [sym_kExperimental; sym_kPlatform;
   sym_kUnimplemented; sym_kCvar]; ACTIONS 4500 [sym_kExport]; ACTIONS 4485 [sym_kFar; sym_kNear;
   sym_kSafecall; sym_kAssembler; sym_kNostackframe; sym_kInterrupt; sym_kNoreturn; sym_kIocheck;
   sym_kLocal; sym_kHardfloat; sym_kSoftfloat; sym_kMs_abi_default; sym_kMs_abi_cdecl;
   sym_kSaveregisters; sym_kSysv_abi_default; sym_kSysv_abi_cdecl; sym_kVectorcall; sym_kVarargs;
   sym_kWinapi]; ACTIONS 4503 [sym_kAlias]; ACTIONS 4478 [sym_kClass; sym_kConst;
   sym_kConstructor; sym_kDestructor; sym_kEnd; sym_kExports; sym_kFinalization; sym_kFunction;
   sym_kImplementation; sym_kInitialization]; ACTIONS 1016 [sym_kInline];
   ACTIONS 4478 [sym_kInterface; sym_kLabel; sym_kProcedure; sym_kProperty; sym_kResourcestring;
   sym_kThreadvar; sym_kType; sym_kUses; sym_kVar]].

(** State 1557. *)
Definition ts_parse_table_1557 : parse_row :=
  [STATE 2265 [sym__procAttribute]; STATE 14480 [sym_procAttribute];
   STATE 1543 [sym_procExternal; aux_sym_declVar_repeat2]; ACTIONS 11909 [anon_sym_LBRACK];
   ACTIONS 4506 [aux_sym_ppUsesBlock_token1]; ACTIONS 3 [sym__space];
   ACTIONS 5 [sym_ppDirective]; ACTIONS 3 [sym_comment]; ACTIONS 4506 [sym_identifier];
   ACTIONS 4513 [sym_kDefault; sym_kNodefault]; ACTIONS 4516 [sym_kDispId];
   ACTIONS 4506 [sym_kGeneric; sym_kOperator]; ACTIONS 4519 [sym_kPublic];
   ACTIONS 4513 [sym_kStatic; sym_kVirtual; sym_kAbstract; sym_kDynamic; sym_kOverride;
   sym_kOverload; sym_kReintroduce; sym_kStdcall; sym_kCdecl; sym_kCppdecl; sym_kPascal;
   sym_kRegister; sym_kMwpascal]; ACTIONS 11862 [sym_kExternal]; ACTIONS 4522 [sym_kMessage];
   ACTIONS 4525 [sym_kDeprecated]; ACTIONS 4513 [sym_kExperimental; sym_kPlatform;
   sym_kUnimplemented; sym_kCvar]; ACTIONS 4528 [sym_kExport]; ACTIONS 4513 [sym_kFar; sym_kNear;
   sym_kSafecall; sym_kAssembler; sym_kNostackframe; sym_kInterrupt; sym_kNoreturn; sym_kIocheck;
   sym_kLocal; sym_kHardfloat; sym_kSoftfloat; sym_kMs_abi_default; sym_kMs_abi_cdecl;
   sym_kSaveregisters; sym_kSysv_abi_default; sym_kSysv_abi_cdecl; sym_kVectorcall; sym_kVarargs;
   sym_kWinapi]; ACTIONS 4531 [sym_kAlias]; ACTIONS 4506 [sym_kClass; sym_kConst;
   sym_kConstructor; sym_kDestructor; sym_kEnd; sym_kExports; sym_kFinalization; sym_kFunction;
   sym_kImplementation; sym_kInitialization]; ACTIONS 1016 [sym_kInline];
   ACTIONS 4506 [sym_kInterface; sym_kLabel; sym_kProcedure; sym_kProperty; sym_kResourcestring;
   sym_kThreadvar; sym_kType; sym_kUses; sym_kVar]].

(** State 1558. *)
Definition ts_parse_table_1558 : parse_row :=
  [STATE 2265 [sym__procAttribute]; STATE 14480 [sym_procAttribute];
   STATE 1545 [sym_procExternal; aux_sym_declVar_repeat2]; ACTIONS 11912 [anon_sym_LBRACK];
   ACTIONS 4534 [aux_sym_ppUsesBlock_token1]; ACTIONS 3 [sym__space];
   ACTIONS 5 [sym_ppDirective]; ACTIONS 3 [sym_comment]; ACTIONS 4534 [sym_identifier];
   ACTIONS 4541 [sym_kDefault; sym_kNodefault]; ACTIONS 4544 [sym_kDispId];
   ACTIONS 4534 [sym_kGeneric; sym_kOperator]; ACTIONS 4547 [sym_kPublic];
   ACTIONS 4541 [sym_kStatic; sym_kVirtual; sym_kAbstract; sym_kDynamic; sym_kOverride;
   sym_kOverload; sym_kReintroduce; sym_kStdcall; sym_kCdecl; sym_kCppdecl; sym_kPascal;
   sym_kRegister; sym_kMwpascal]; ACTIONS 11862 [sym_kExternal]; ACTIONS 4550 [sym_kMessage];
   ACTIONS 4553 [sym_kDeprecated]; ACTIONS 4541 [sym_kExperimental; sym_kPlatform;
   sym_kUnimplemented; sym_kCvar]; ACTIONS 4556 [sym_kExport]; ACTIONS 4541 [sym_kFar; sym_kNear;
   sym_kSafecall; sym_kAssembler; sym_kNostackframe; sym_kInterrupt; sym_kNoreturn; sym_kIocheck;
   sym_kLocal; sym_kHardfloat; sym_kSoftfloat; sym_kMs_abi_default; sym_kMs_abi_cdecl;
   sym_kSaveregisters; sym_kSysv_abi_default; sym_kSysv_abi_cdecl; sym_kVectorcall; sym_kVarargs;
   sym_kWinapi]; ACTIONS 4559 [sym_kAlias]; ACTIONS 4534 [sym_kClass; sym_kConst;
   sym_kConstructor; sym_kDestructor; sym_kEnd; sym_kExports; sym_kFinalization; sym_kFunction;
   sym_kImplementation; sym_kInitialization]; ACTIONS 1016 [sym_kInline];
   ACTIONS 4534 [sym_kInterface; sym_kLabel; sym_kProcedure; sym_kProperty; sym_kResourcestring;
   sym_kThreadvar; sym_kType; sym_kUses; sym_kVar]].

(** State 1559. *)
Definition ts_parse_table_1559 : parse_row :=
  [STATE 2265 [sym__procAttribute]; STATE 14480 [sym_procAttribute];
   STATE 1549 [sym_procExternal; aux_sym_declVar_repeat2]; ACTIONS 11915 [anon_sym_LBRACK];
   ACTIONS 4593 [aux_sym_ppUsesBlock_token1]; ACTIONS 3 [sym__space];
   ACTIONS 5 [sym_ppDirective]; ACTIONS 3 [sym_comment]; ACTIONS 4593 [sym_identifier];
   ACTIONS 4600 [sym_kDefault; sym_kNodefault]; ACTIONS 4603 [sym_kDispId];
   ACTIONS 4593 [sym_kGeneric; sym_kOperator]; ACTIONS 4606 [sym_kPublic];
   ACTIONS 4600 [sym_kStatic; sym_kVirtual; sym_kAbstract; sym_kDynamic; sym_kOverride;
   sym_kOverload; sym_kReintroduce; sym_kStdcall; sym_kCdecl; sym_kCppdecl; sym_kPascal;
   sym_kRegister; sym_kMwpascal]; ACTIONS 11862 [sym_kExternal]; ACTIONS 4609 [sym_kMessage];
   ACTIONS 4612 [sym_kDeprecated]; ACTIONS 4600 [sym_kExperimental; sym_kPlatform;
   sym_kUnimplemented; sym_kCvar]; ACTIONS 4615 [sym_kExport]; ACTIONS 4600 [sym_kFar; sym_kNear;
   sym_kSafecall; sym_kAssembler; sym_kNostackframe; sym_kInterrupt; sym_kNoreturn; sym_kIocheck;
   sym_kLocal; sym_kHardfloat; sym_kSoftfloat; sym_kMs_abi_default; sym_kMs_abi_cdecl;
   sym_kSaveregisters; sym_kSysv_abi_default; sym_kSysv_abi_cdecl; sym_kVectorcall; sym_kVarargs;
   sym_kWinapi]; ACTIONS 4618 [sym_kAlias]; ACTIONS 4593 [sym_kClass; sym_kConst;
   sym_kConstructor; sym_kDestructor; sym_kEnd; sym_kExports; sym_kFinalization; sym_kFunction;
   sym_kImplementation; sym_kInitialization]; ACTIONS 1016 [sym_kInline];
   ACTIONS 4593 [sym_kInterface; sym_kLabel; sym_kProcedure; sym_kProperty; sym_kResourcestring;
   sym_kThreadvar; sym_kType; sym_kUses; sym_kVar]].

(** State 1560. *)
Definition ts_parse_table_1560 : parse_row :=
  [STATE 2265 [sym__procAttribute]; STATE 14480 [sym_procAttribute];
   STATE 1551 [sym_procExternal; aux_sym_declVar_repeat2]; ACTIONS 11918 [anon_sym_LBRACK];
   ACTIONS 4761 [aux_sym_ppUsesBlock_token1]; ACTIONS 3 [sym__space];
   ACTIONS 5 [sym_ppDirective]; ACTIONS 3 [sym_comment]; ACTIONS 4761 [sym_identifier];
   ACTIONS 4768 [sym_kDefault; sym_kNodefault]; ACTIONS 4771 [sym_kDispId];
   ACTIONS 4761 [sym_kGeneric; sym_kOperator]; ACTIONS 4774 [sym_kPublic];
   ACTIONS 4768 [sym_kStatic; sym_kVirtual; sym_kAbstract; sym_kDynamic; sym_kOverride;
   sym_kOverload; sym_kReintroduce; sym_kStdcall; sym_kCdecl; sym_kCppdecl; sym_kPascal;
   sym_kRegister; sym_kMwpascal]; ACTIONS 11862 [sym_kExternal]; ACTIONS 4777 [sym_kMessage];
   ACTIONS 4780 [sym_kDeprecated]; ACTIONS 4768 [sym_kExperimental; sym_kPlatform;
   sym_kUnimplemented; sym_kCvar]; ACTIONS 4783 [sym_kExport]; ACTIONS 4768 [sym_kFar; sym_kNear;
   sym_kSafecall; sym_kAssembler; sym_kNostackframe; sym_kInterrupt; sym_kNoreturn; sym_kIocheck;
   sym_kLocal; sym_kHardfloat; sym_kSoftfloat; sym_kMs_abi_default; sym_kMs_abi_cdecl;
   sym_kSaveregisters; sym_kSysv_abi_default; sym_kSysv_abi_cdecl; sym_kVectorcall; sym_kVarargs;
   sym_kWinapi]; ACTIONS 4786 [sym_kAlias]; ACTIONS 4761 [sym_kClass; sym_kConst;
   sym_kConstructor; sym_kDestructor; sym_kEnd; sym_kExports; sym_kFinalization; sym_kFunction;
   sym_kImplementation; sym_kInitialization]; ACTIONS 1016 [sym_kInline];
   ACTIONS 4761 [sym_kInterface; sym_kLabel; sym_kProcedure; sym_kProperty; sym_kResourcestring;
   sym_kThreadvar; sym_kType; sym_kUses; sym_kVar]].

(** State 1561. *)
Definition ts_parse_table_1561 : parse_row :=
  [STATE 2189 [sym__procAttribute]; STATE 14259 [sym_procAttribute];
   STATE 1600 [sym_procExternal; aux_sym_declVar_repeat2]; ACTIONS 11921 [anon_sym_LBRACK];
   ACTIONS 4085 [aux_sym_ppUsesBlock_token1]; ACTIONS 3 [sym__space];
   ACTIONS 5 [sym_ppDirective]; ACTIONS 3 [sym_comment]; ACTIONS 4085 [sym_identifier];
   ACTIONS 4092 [sym_kDefault; sym_kNodefault]; ACTIONS 4095 [sym_kDispId];
   ACTIONS 4085 [sym_kGeneric; sym_kOperator]; ACTIONS 4098 [sym_kPublic];
   ACTIONS 4092 [sym_kStatic; sym_kVirtual; sym_kAbstract; sym_kDynamic; sym_kOverride;
   sym_kOverload; sym_kReintroduce; sym_kStdcall; sym_kCdecl; sym_kCppdecl; sym_kPascal;
   sym_kRegister; sym_kMwpascal]; ACTIONS 11924 [sym_kExternal]; ACTIONS 4101 [sym_kMessage];
   ACTIONS 4104 [sym_kDeprecated]; ACTIONS 4092 [sym_kExperimental; sym_kPlatform;
   sym_kUnimplemented; sym_kCvar]; ACTIONS 4107 [sym_kExport]; ACTIONS 4092 [sym_kFar; sym_kNear;
   sym_kSafecall; sym_kAssembler; sym_kNostackframe; sym_kInterrupt; sym_kNoreturn; sym_kIocheck;
   sym_kLocal; sym_kHardfloat; sym_kSoftfloat; sym_kMs_abi_default; sym_kMs_abi_cdecl;
   sym_kSaveregisters; sym_kSysv_abi_default; sym_kSysv_abi_cdecl; sym_kVectorcall; sym_kVarargs;
   sym_kWinapi]; ACTIONS 4110 [sym_kAlias]; ACTIONS 4085 [sym_kBegin; sym_kClass; sym_kConst;
   sym_kConstructor; sym_kDestructor; sym_kEnd; sym_kExports; sym_kFinalization; sym_kFunction;
   sym_kImplementation; sym_kInitialization]; ACTIONS 1016 [sym_kInline];
   ACTIONS 4085 [sym_kInterface; sym_kLabel; sym_kProcedure; sym_kResourcestring; sym_kThreadvar;
   sym_kType; sym_kUses; sym_kVar]].

(** State 1562. *)
Definition ts_parse_table_1562 : parse_row :=
  [STATE 2251 [sym__procAttribute]; STATE 15882 [sym_procAttribute];
   STATE 1649 [sym_procExternal; aux_sym_declVar_repeat2]; ACTIONS 11926 [anon_sym_LBRACK];
   ACTIONS 4733 [aux_sym_ppUsesBlock_token1]; ACTIONS 3 [sym__space];
   ACTIONS 5 [sym_ppDirective]; ACTIONS 3 [sym_comment]; ACTIONS 4733 [sym_identifier];
   ACTIONS 4740 [sym_kDefault; sym_kNodefault]; ACTIONS 4743 [sym_kDispId];
   ACTIONS 4733 [sym_kGeneric; sym_kOperator; sym_kPublished]; ACTIONS 4746 [sym_kPublic];
   ACTIONS 4733 [sym_kProtected; sym_kPrivate; sym_kStrict; sym_kRequired; sym_kOptional];
   ACTIONS 4740 [sym_kStatic; sym_kVirtual; sym_kAbstract; sym_kDynamic; sym_kOverride;
   sym_kOverload; sym_kReintroduce; sym_kStdcall; sym_kCdecl; sym_kCppdecl; sym_kPascal;
   sym_kRegister; sym_kMwpascal]; ACTIONS 11857 [sym_kExternal]; ACTIONS 4749 [sym_kMessage];
   ACTIONS 4752 [sym_kDeprecated]; ACTIONS 4740 [sym_kExperimental; sym_kPlatform;
   sym_kUnimplemented; sym_kCvar]; ACTIONS 4755 [sym_kExport]; ACTIONS 4740 [sym_kFar; sym_kNear;
   sym_kSafecall; sym_kAssembler; sym_kNostackframe; sym_kInterrupt; sym_kNoreturn; sym_kIocheck;
   sym_kLocal; sym_kHardfloat; sym_kSoftfloat; sym_kMs_abi_default; sym_kMs_abi_cdecl;
   sym_kSaveregisters; sym_kSysv_abi_default; sym_kSysv_abi_cdecl; sym_kVectorcall; sym_kVarargs;
   sym_kWinapi]; ACTIONS 4758 [sym_kAlias]; ACTIONS 4733 [sym_kCase; sym_kClass; sym_kConst;
   sym_kConstructor; sym_kDestructor; sym_kEnd; sym_kFunction]; ACTIONS 1016 [sym_kInline];
   ACTIONS 4733 [sym_kProcedure; sym_kProperty; sym_kResourcestring; sym_kThreadvar; sym_kType;
   sym_kVar]].

(** State 1563. *)
Definition ts_parse_table_1563 : parse_row :=
  [STATE 2265 [sym__procAttribute]; STATE 14480 [sym_procAttribute];
   STATE 1683 [sym_procExternal; aux_sym_declVar_repeat2]; ACTIONS 11929 [anon_sym_LBRACK];
   ACTIONS 3883 [aux_sym_ppUsesBlock_token1]; ACTIONS 3 [sym__space];
   ACTIONS 5 [sym_ppDirective]; ACTIONS 3 [sym_comment]; ACTIONS 3883 [sym_identifier];
   ACTIONS 3890 [sym_kDefault; sym_kNodefault]; ACTIONS 3893 [sym_kDispId];
   ACTIONS 3883 [sym_kGeneric; sym_kOperator]; ACTIONS 3896 [sym_kPublic];
   ACTIONS 3890 [sym_kStatic; sym_kVirtual; sym_kAbstract; sym_kDynamic; sym_kOverride;
   sym_kOverload; sym_kReintroduce; sym_kStdcall; sym_kCdecl; sym_kCppdecl; sym_kPascal;
   sym_kRegister; sym_kMwpascal]; ACTIONS 11862 [sym_kExternal]; ACTIONS 3899 [sym_kMessage];
   ACTIONS 3902 [sym_kDeprecated]; ACTIONS 3890 [sym_kExperimental; sym_kPlatform;
   sym_kUnimplemented; sym_kCvar]; ACTIONS 3905 [sym_kExport]; ACTIONS 3890 [sym_kFar; sym_kNear;
   sym_kSafecall; sym_kAssembler; sym_kNostackframe; sym_kInterrupt; sym_kNoreturn; sym_kIocheck;
   sym_kLocal; sym_kHardfloat; sym_kSoftfloat; sym_kMs_abi_default; sym_kMs_abi_cdecl;
   sym_kSaveregisters; sym_kSysv_abi_default; sym_kSysv_abi_cdecl; sym_kVectorcall; sym_kVarargs;
   sym_kWinapi]; ACTIONS 3908 [sym_kAlias]; ACTIONS 3883 [sym_kClass; sym_kConst;
   sym_kConstructor; sym_kDestructor; sym_kEnd; sym_kExports; sym_kFinalization; sym_kFunction;
   sym_kImplementation; sym_kInitialization]; ACTIONS 1016 [sym_kInline];
   ACTIONS 3883 [sym_kInterface; sym_kLabel; sym_kProcedure; sym_kProperty; sym_kResourcestring;
   sym_kThreadvar; sym_kType; sym_kUses; sym_kVar]].

(** State 1564. *)
Definition ts_parse_table_1564 : parse_row :=
  [STATE 2265 [sym__procAttribute]; STATE 14480 [sym_procAttribute];
   STATE 1683 [sym_procExternal; aux_sym_declVar_repeat2]; ACTIONS 11932 [anon_sym_LBRACK];
   ACTIONS 3942 [aux_sym_ppUsesBlock_token1]; ACTIONS 3 [sym__space];
   ACTIONS 5 [sym_ppDirective]; ACTIONS 3 [sym_comment]; ACTIONS 3942 [sym_identifier];
   ACTIONS 3949 [sym_kDefault; sym_kNodefault]; ACTIONS 3952 [sym_kDispId];
   ACTIONS 3942 [sym_kGeneric; sym_kOperator]; ACTIONS 3955 [sym_kPublic];
   ACTIONS 3949 [sym_kStatic; sym_kVirtual; sym_kAbstract; sym_kDynamic; sym_kOverride;
   sym_kOverload; sym_kReintroduce; sym_kStdcall; sym_kCdecl; sym_kCppdecl; sym_kPascal;
   sym_kRegister; sym_kMwpascal]; ACTIONS 11862 [sym_kExternal]; ACTIONS 3958 [sym_kMessage];
   ACTIONS 3961 [sym_kDeprecated]; ACTIONS 3949 [sym_kExperimental; sym_kPlatform;
   sym_kUnimplemented; sym_kCvar]; ACTIONS 3964 [sym_kExport]; ACTIONS 3949 [sym_kFar; sym_kNear;
   sym_kSafecall; sym_kAssembler; sym_kNostackframe; sym_kInterrupt; sym_kNoreturn; sym_kIocheck;
   sym_kLocal; sym_kHardfloat; sym_kSoftfloat; sym_kMs_abi_default; sym_kMs_abi_cdecl;
   sym_kSaveregisters; sym_kSysv_abi_default; sym_kSysv_abi_cdecl; sym_kVectorcall; sym_kVarargs;
   sym_kWinapi]; ACTIONS 3967 [sym_kAlias]; ACTIONS 3942 [sym_kClass; sym_kConst;
   sym_kConstructor; sym_kDestructor; sym_kEnd; sym_kExports; sym_kFinalization; sym_kFunction;
   sym_kImplementation; sym_kInitialization]; ACTIONS 1016 [sym_kInline];
   ACTIONS 3942 [sym_kInterface; sym_kLabel; sym_kProcedure; sym_kProperty; sym_kResourcestring;
   sym_kThreadvar; sym_kType; sym_kUses; sym_kVar]].

(** State 1565. *)
Definition ts_parse_table_1565 : parse_row :=
  [STATE 2265 [sym__procAttribute]; STATE 14480 [sym_procAttribute];
   STATE 1581 [sym_procExternal; aux_sym_declVar_repeat2]; ACTIONS 11935 [anon_sym_LBRACK];
   ACTIONS 3970 [aux_sym_ppUsesBlock_token1]; ACTIONS 3 [sym__space];
   ACTIONS 5 [sym_ppDirective]; ACTIONS 3 [sym_comment]; ACTIONS 3970 [sym_identifier];
   ACTIONS 3977 [sym_kDefault; sym_kNodefault]; ACTIONS 3980 [sym_kDispId];
   ACTIONS 3970 [sym_kGeneric; sym_kOperator]; ACTIONS 3983 [sym_kPublic];
   ACTIONS 3977 [sym_kStatic; sym_kVirtual; sym_kAbstract; sym_kDynamic; sym_kOverride;
   sym_kOverload; sym_kReintroduce; sym_kStdcall; sym_kCdecl; sym_kCppdecl; sym_kPascal;
   sym_kRegister; sym_kMwpascal]; ACTIONS 11862 [sym_kExternal]; ACTIONS 3986 [sym_kMessage];
   ACTIONS 3989 [sym_kDeprecated]; ACTIONS 3977 [sym_kExperimental; sym_kPlatform;
   sym_kUnimplemented; sym_kCvar]; ACTIONS 3992 [sym_kExport]; ACTIONS 3977 [sym_kFar; sym_kNear;
   sym_kSafecall; sym_kAssembler; sym_kNostackframe; sym_kInterrupt; sym_kNoreturn; sym_kIocheck;
   sym_kLocal; sym_kHardfloat; sym_kSoftfloat; sym_kMs_abi_default; sym_kMs_abi_cdecl;
   sym_kSaveregisters; sym_kSysv_abi_default; sym_kSysv_abi_cdecl; sym_kVectorcall; sym_kVarargs;
   sym_kWinapi]; ACTIONS 3995 [sym_kAlias]; ACTIONS 3970 [sym_kClass; sym_kConst;
   sym_kConstructor; sym_kDestructor; sym_kEnd; sym_kExports; sym_kFinalization; sym_kFunction;
   sym_kImplementation; sym_kInitialization]; ACTIONS 1016 [sym_kInline];
   ACTIONS 3970 [sym_kInterface; sym_kLabel; sym_kProcedure; sym_kProperty; sym_kResourcestring;
   sym_kThreadvar; sym_kType; sym_kUses; sym_kVar]].

(** State 1566. *)
Definition ts_parse_table_1566 : parse_row :=
  [STATE 2265 [sym__procAttribute]; STATE 14480 [sym_procAttribute];
   STATE 1683 [sym_procExternal; aux_sym_declVar_repeat2]; ACTIONS 11938 [anon_sym_LBRACK];
   ACTIONS 4057 [aux_sym_ppUsesBlock_token1]; ACTIONS 3 [sym__space];
   ACTIONS 5 [sym_ppDirective]; ACTIONS 3 [sym_comment]; ACTIONS 4057 [sym_identifier];
   ACTIONS 4064 [sym_kDefault; sym_kNodefault]; ACTIONS 4067 [sym_kDispId];
   ACTIONS 4057 [sym_kGeneric; sym_kOperator]; ACTIONS 4070 [sym_kPublic];
   ACTIONS 4064 [sym_kStatic; sym_kVirtual; sym_kAbstract; sym_kDynamic; sym_kOverride;
   sym_kOverload; sym_kReintroduce; sym_kStdcall; sym_kCdecl; sym_kCppdecl; sym_kPascal;
   sym_kRegister; sym_kMwpascal]; ACTIONS 11862 [sym_kExternal]; ACTIONS 4073 [sym_kMessage];
   ACTIONS 4076 [sym_kDeprecated]; ACTIONS 4064 [sym_kExperimental; sym_kPlatform;
   sym_kUnimplemented; sym_kCvar]; ACTIONS 4079 [sym_kExport]; ACTIONS 4064 [sym_kFar; sym_kNear;
   sym_kSafecall; sym_kAssembler; sym_kNostackframe; sym_kInterrupt; sym_kNoreturn; sym_kIocheck;
   sym_kLocal; sym_kHardfloat; sym_kSoftfloat; sym_kMs_abi_default; sym_kMs_abi_cdecl;
   sym_kSaveregisters; sym_kSysv_abi_default; sym_kSysv_abi_cdecl; sym_kVectorcall; sym_kVarargs;
   sym_kWinapi]; ACTIONS 4082 [sym_kAlias]; ACTIONS 4057 [sym_kClass; sym_kConst;
   sym_kConstructor; sym_kDestructor; sym_kEnd; sym_kExports; sym_kFinalization; sym_kFunction;
   sym_kImplementation; sym_kInitialization]; ACTIONS 1016 [sym_kInline];
   ACTIONS 4057 [sym_kInterface; sym_kLabel; sym_kProcedure; sym_kProperty; sym_kResourcestring;
   sym_kThreadvar; sym_kType; sym_kUses; sym_kVar]].

(** State 1567. *)
Definition ts_parse_table_1567 : parse_row :=
  [STATE 2265 [sym__procAttribute]; STATE 14480 [sym_procAttribute];
   STATE 1582 [sym_procExternal; aux_sym_declVar_repeat2]; ACTIONS 11941 [anon_sym_LBRACK];
   ACTIONS 4178 [aux_sym_ppUsesBlock_token1]; ACTIONS 3 [sym__space];
   ACTIONS 5 [sym_ppDirective]; ACTIONS 3 [sym_comment]; ACTIONS 4178 [sym_identifier];
   ACTIONS 4185 [sym_kDefault; sym_kNodefault]; ACTIONS 4188 [sym_kDispId];
   ACTIONS 4178 [sym_kGeneric; sym_kOperator]; ACTIONS 4191 [sym_kPublic];
   ACTIONS 4185 [sym_kStatic; sym_kVirtual; sym_kAbstract; sym_kDynamic; sym_kOverride;
   sym_kOverload; sym_kReintroduce; sym_kStdcall; sym_kCdecl; sym_kCppdecl; sym_kPascal;
   sym_kRegister; sym_kMwpascal]; ACTIONS 11862 [sym_kExternal]; ACTIONS 4194 [sym_kMessage];
   ACTIONS 4197 [sym_kDeprecated]; ACTIONS 4185 [sym_kExperimental; sym_kPlatform;
   sym_kUnimplemented; sym_kCvar]; ACTIONS 4200 [sym_kExport]; ACTIONS 4185 [sym_kFar; sym_kNear;
   sym_kSafecall; sym_kAssembler; sym_kNostackframe; sym_kInterrupt; sym_kNoreturn; sym_kIocheck;
   sym_kLocal; sym_kHardfloat; sym_kSoftfloat; sym_kMs_abi_default; sym_kMs_abi_cdecl;
   sym_kSaveregisters; sym_kSysv_abi_default; sym_kSysv_abi_cdecl; sym_kVectorcall; sym_kVarargs;
   sym_kWinapi]; ACTIONS 4203 [sym_kAlias]; ACTIONS 4178 [sym_kClass; sym_kConst;
   sym_kConstructor; sym_kDestructor; sym_kEnd; sym_kExports; sym_kFinalization; sym_kFunction;
   sym_kImplementation; sym_kInitialization]; ACTIONS 1016 [sym_kInline];
   ACTIONS 4178 [sym_kInterface; sym_kLabel; sym_kProcedure; sym_kProperty; sym_kResourcestring;
   sym_kThreadvar; sym_kType; sym_kUses; sym_kVar]].

(** State 1568. *)
Definition ts_parse_table_1568 : parse_row :=
  [STATE 2265 [sym__procAttribute]; STATE 14480 [sym_procAttribute];
   STATE 1683 [sym_procExternal; aux_sym_declVar_repeat2]; ACTIONS 11944 [anon_sym_LBRACK];
   ACTIONS 4237 [aux_sym_ppUsesBlock_token1]; ACTIONS 3 [sym__space];
   ACTIONS 5 [sym_ppDirective]; ACTIONS 3 [sym_comment]; ACTIONS 4237 [sym_identifier];
   ACTIONS 4244 [sym_kDefault; sym_kNodefault]; ACTIONS 4247 [sym_kDispId];
   ACTIONS 4237 [sym_kGeneric; sym_kOperator]; ACTIONS 4250 [sym_kPublic];
   ACTIONS 4244 [sym_kStatic; sym_kVirtual; sym_kAbstract; sym_kDynamic; sym_kOverride;
   sym_kOverload; sym_kReintroduce; sym_kStdcall; sym_kCdecl; sym_kCppdecl; sym_kPascal;
   sym_kRegister; sym_kMwpascal]; ACTIONS 11862 [sym_kExternal]; ACTIONS 4253 [sym_kMessage];
   ACTIONS 4256 [sym_kDeprecated]; ACTIONS 4244 [sym_kExperimental; sym_kPlatform;
   sym_kUnimplemented; sym_kCvar]; ACTIONS 4259 [sym_kExport]; ACTIONS 4244 [sym_kFar; sym_kNear;
   sym_kSafecall; sym_kAssembler; sym_kNostackframe; sym_kInterrupt; sym_kNoreturn; sym_kIocheck;
   sym_kLocal; sym_kHardfloat; sym_kSoftfloat; sym_kMs_abi_default; sym_kMs_abi_cdecl;
   sym_kSaveregisters; sym_kSysv_abi_default; sym_kSysv_abi_cdecl; sym_kVectorcall; sym_kVarargs;
   sym_kWinapi]; ACTIONS 4262 [sym_kAlias]; ACTIONS 4237 [sym_kClass; sym_kConst;
   sym_kConstructor; sym_kDestructor; sym_kEnd; sym_kExports; sym_kFinalization; sym_kFunction;
   sym_kImplementation; sym_kInitialization]; ACTIONS 1016 [sym_kInline];
   ACTIONS 4237 [sym_kInterface; sym_kLabel; sym_kProcedure; sym_kProperty; sym_kResourcestring;
   sym_kThreadvar; sym_kType; sym_kUses; sym_kVar]].

(** State 1569. *)
Definition ts_parse_table_1569 : parse_row :=
  [STATE 2265 [sym__procAttribute]; STATE 14480 [sym_procAttribute];
   STATE 1683 [sym_procExternal; aux_sym_declVar_repeat2]; ACTIONS 11947 [anon_sym_LBRACK];
   ACTIONS 4447 [aux_sym_ppUsesBlock_token1]; ACTIONS 3 [sym__space];
   ACTIONS 5 [sym_ppDirective]; ACTIONS 3 [sym_comment]; ACTIONS 4447 [sym_identifier];
   ACTIONS 4454 [sym_kDefault; sym_kNodefault]; ACTIONS 4457 [sym_kDispId];
   ACTIONS 4447 [sym_kGeneric; sym_kOperator]; ACTIONS 4460 [sym_kPublic];
   ACTIONS 4454 [sym_kStatic; sym_kVirtual; sym_kAbstract; sym_kDynamic; sym_kOverride;
   sym_kOverload; sym_kReintroduce; sym_kStdcall; sym_kCdecl; sym_kCppdecl; sym_kPascal;
   sym_kRegister; sym_kMwpascal]; ACTIONS 11862 [sym_kExternal]; ACTIONS 4463 [sym_kMessage];
   ACTIONS 4466 [sym_kDeprecated]; ACTIONS 4454 [sym_kExperimental; sym_kPlatform;
   sym_kUnimplemented; sym_kCvar]; ACTIONS 4469 [sym_kExport]; ACTIONS 4454 [sym_kFar; sym_kNear;
   sym_kSafecall; sym_kAssembler; sym_kNostackframe; sym_kInterrupt; sym_kNoreturn; sym_kIocheck;
   sym_kLocal; sym_kHardfloat; sym_kSoftfloat; sym_kMs_abi_default; sym_kMs_abi_cdecl;
   sym_kSaveregisters; sym_kSysv_abi_default; sym_kSysv_abi_cdecl; sym_kVectorcall; sym_kVarargs;
   sym_kWinapi]; ACTIONS 4472 [sym_kAlias]; ACTIONS 4447 [sym_kClass; sym_kConst;
   sym_kConstructor; sym_kDestructor; sym_kEnd; sym_kExports; sym_kFinalization; sym_kFunction;
   sym_kImplementation; sym_kInitialization]; ACTIONS 1016 [sym_kInline];
   ACTIONS 4447 [sym_kInterface; sym_kLabel; sym_kProcedure; sym_kProperty; sym_kResourcestring;
   sym_kThreadvar; sym_kType; sym_kUses; sym_kVar]].

(** State 1570. *)
Definition ts_parse_table_1570 : parse_row :=
  [STATE 2265 [sym__procAttribute]; STATE 14480 [sym_procAttribute];
   STATE 1584 [sym_procExternal; aux_sym_declVar_repeat2]; ACTIONS 11950 [anon_sym_LBRACK];
   ACTIONS 4879 [aux_sym_ppUsesBlock_token1]; ACTIONS 3 [sym__space];
   ACTIONS 5 [sym_ppDirective]; ACTIONS 3 [sym_comment]; ACTIONS 4879 [sym_identifier];
   ACTIONS 4886 [sym_kDefault; sym_kNodefault]; ACTIONS 4889 [sym_kDispId];
   ACTIONS 4879 [sym_kGeneric; sym_kOperator]; ACTIONS 4892 [sym_kPublic];
   ACTIONS 4886 [sym_kStatic; sym_kVirtual; sym_kAbstract; sym_kDynamic; sym_kOverride;
   sym_kOverload; sym_kReintroduce; sym_kStdcall; sym_kCdecl; sym_kCppdecl; sym_kPascal;
   sym_kRegister; sym_kMwpascal]; ACTIONS 11862 [sym_kExternal]; ACTIONS 4895 [sym_kMessage];
   ACTIONS 4898 [sym_kDeprecated]; ACTIONS 4886 [sym_kExperimental; sym_kPlatform;
   sym_kUnimplemented; sym_kCvar]; ACTIONS 4901 [sym_kExport]; ACTIONS 4886 [sym_kFar; sym_kNear;
   sym_kSafecall; sym_kAssembler; sym_kNostackframe; sym_kInterrupt; sym_kNoreturn; sym_kIocheck;
   sym_kLocal; sym_kHardfloat; sym_kSoftfloat; sym_kMs_abi_default; sym_kMs_abi_cdecl;
   sym_kSaveregisters; sym_kSysv_abi_default; sym_kSysv_abi_cdecl; sym_kVectorcall; sym_kVarargs;
   sym_kWinapi]; ACTIONS 4904 [sym_kAlias]; ACTIONS 4879 [sym_kClass; sym_kConst;
   sym_kConstructor; sym_kDestructor; sym_kEnd; sym_kExports; sym_kFinalization; sym_kFunction;
   sym_kImplementation; sym_kInitialization]; ACTIONS 1016 [sym_kInline];
   ACTIONS 4879 [sym_kInterface; sym_kLabel; sym_kProcedure; sym_kProperty; sym_kResourcestring;
   sym_kThreadvar; sym_kType; sym_kUses; sym_kVar]].

(** State 1571. *)
Definition ts_parse_table_1571 : parse_row :=
  [STATE 2265 [sym__procAttribute]; STATE 14480 [sym_procAttribute];
   STATE 1683 [sym_procExternal; aux_sym_declVar_repeat2]; ACTIONS 11953 [anon_sym_LBRACK];
   ACTIONS 4969 [aux_sym_ppUsesBlock_token1]; ACTIONS 3 [sym__space];
   ACTIONS 5 [sym_ppDirective]; ACTIONS 3 [sym_comment]; ACTIONS 4969 [sym_identifier];
   ACTIONS 4976 [sym_kDefault; sym_kNodefault]; ACTIONS 4979 [sym_kDispId];
   ACTIONS 4969 [sym_kGeneric; sym_kOperator]; ACTIONS 4982 [sym_kPublic];
   ACTIONS 4976 [sym_kStatic; sym_kVirtual; sym_kAbstract; sym_kDynamic; sym_kOverride;
   sym_kOverload; sym_kReintroduce; sym_kStdcall; sym_kCdecl; sym_kCppdecl; sym_kPascal;
   sym_kRegister; sym_kMwpascal]; ACTIONS 11862 [sym_kExternal]; ACTIONS 4985 [sym_kMessage];
   ACTIONS 4988 [sym_kDeprecated]; ACTIONS 4976 [sym_kExperimental; sym_kPlatform;
   sym_kUnimplemented; sym_kCvar]; ACTIONS 4991 [sym_kExport]; ACTIONS 4976 [sym_kFar; sym_kNear;
   sym_kSafecall; sym_kAssembler; sym_kNostackframe; sym_kInterrupt; sym_kNoreturn; sym_kIocheck;
   sym_kLocal; sym_kHardfloat; sym_kSoftfloat; sym_kMs_abi_default; sym_kMs_abi_cdecl;
   sym_kSaveregisters; sym_kSysv_abi_default; sym_kSysv_abi_cdecl; sym_kVectorcall; sym_kVarargs;
   sym_kWinapi]; ACTIONS 4994 [sym_kAlias]; ACTIONS 4969 [sym_kClass; sym_kConst;
   sym_kConstructor; sym_kDestructor; sym_kEnd; sym_kExports; sym_kFinalization; sym_kFunction;
   sym_kImplementation; sym_kInitialization]; ACTIONS 1016 [sym_kInline];
   ACTIONS 4969 [sym_kInterface; sym_kLabel; sym_kProcedure; sym_kProperty; sym_kResourcestring;
   sym_kThreadvar; sym_kType; sym_kUses; sym_kVar]].

Definition ts_parse_table_part8 : list parse_row :=
  [
   ts_parse_table_1324; ts_parse_table_1325; ts_parse_table_1326; ts_parse_table_1327;
   ts_parse_table_1328; ts_parse_table_1329; ts_parse_table_1330; ts_parse_table_1331;
   ts_parse_table_1332; ts_parse_table_1333; ts_parse_table_1334; ts_parse_table_1335;
   ts_parse_table_1336; ts_parse_table_1337; ts_parse_table_1338; ts_parse_table_1339;
   ts_parse_table_1340; ts_parse_table_1341; ts_parse_table_1342; ts_parse_table_1343;
   ts_parse_table_1344; ts_parse_table_1345; ts_parse_table_1346; ts_parse_table_1347;
   ts_parse_table_1348; ts_parse_table_1349; ts_parse_table_1350; ts_parse_table_1351;
   ts_parse_table_1352; ts_parse_table_1353; ts_parse_table_1354; ts_parse_table_1355;
   ts_parse_table_1356; ts_parse_table_1357; ts_parse_table_1358; ts_parse_table_1359;
   ts_parse_table_1360; ts_parse_table_1361; ts_parse_table_1362; ts_parse_table_1363;
   ts_parse_table_1364; ts_parse_table_1365; ts_parse_table_1366; ts_parse_table_1367;
   ts_parse_table_1368; ts_parse_table_1369; ts_parse_table_1370; ts_parse_table_1371;
   ts_parse_table_1372; ts_parse_table_1373; ts_parse_table_1374; ts_parse_table_1375;
   ts_parse_table_1376; ts_parse_table_1377; ts_parse_table_1378; ts_parse_table_1379;
   ts_parse_table_1380; ts_parse_table_1381; ts_parse_table_1382; ts_parse_table_1383;
   ts_parse_table_1384; ts_parse_table_1385; ts_parse_table_1386; ts_parse_table_1387;
   ts_parse_table_1388; ts_parse_table_1389; ts_parse_table_1390; ts_parse_table_1391;
   ts_parse_table_1392; ts_parse_table_1393; ts_parse_table_1394; ts_parse_table_1395;
   ts_parse_table_1396; ts_parse_table_1397; ts_parse_table_1398; ts_parse_table_1399;
   ts_parse_table_1400; ts_parse_table_1401; ts_parse_table_1402; ts_parse_table_1403;
   ts_parse_table_1404; ts_parse_table_1405; ts_parse_table_1406; ts_parse_table_1407;
   ts_parse_table_1408; ts_parse_table_1409; ts_parse_table_1410; ts_parse_table_1411;
   ts_parse_table_1412; ts_parse_table_1413; ts_parse_table_1414; ts_parse_table_1415;
   ts_parse_table_1416; ts_parse_table_1417; ts_parse_table_1418; ts_parse_table_1419;
   ts_parse_table_1420; ts_parse_table_1421; ts_parse_table_1422; ts_parse_table_1423;
   ts_parse_table_1424; ts_parse_table_1425; ts_parse_table_1426; ts_parse_table_1427;
   ts_parse_table_1428; ts_parse_table_1429; ts_parse_table_1430; ts_parse_table_1431;
   ts_parse_table_1432; ts_parse_table_1433; ts_parse_table_1434; ts_parse_table_1435;
   ts_parse_table_1436; ts_parse_table_1437; ts_parse_table_1438; ts_parse_table_1439;
   ts_parse_table_1440; ts_parse_table_1441; ts_parse_table_1442; ts_parse_table_1443;
   ts_parse_table_1444; ts_parse_table_1445; ts_parse_table_1446; ts_parse_table_1447;
   ts_parse_table_1448; ts_parse_table_1449; ts_parse_table_1450; ts_parse_table_1451;
   ts_parse_table_1452; ts_parse_table_1453; ts_parse_table_1454; ts_parse_table_1455;
   ts_parse_table_1456; ts_parse_table_1457; ts_parse_table_1458; ts_parse_table_1459;
   ts_parse_table_1460; ts_parse_table_1461; ts_parse_table_1462; ts_parse_table_1463;
   ts_parse_table_1464; ts_parse_table_1465; ts_parse_table_1466; ts_parse_table_1467;
   ts_parse_table_1468; ts_parse_table_1469; ts_parse_table_1470; ts_parse_table_1471;
   ts_parse_table_1472; ts_parse_table_1473; ts_parse_table_1474; ts_parse_table_1475;
   ts_parse_table_1476; ts_parse_table_1477; ts_parse_table_1478; ts_parse_table_1479;
   ts_parse_table_1480; ts_parse_table_1481; ts_parse_table_1482; ts_parse_table_1483;
   ts_parse_table_1484; ts_parse_table_1485; ts_parse_table_1486; ts_parse_table_1487;
   ts_parse_table_1488; ts_parse_table_1489; ts_parse_table_1490; ts_parse_table_1491;
   ts_parse_table_1492; ts_parse_table_1493; ts_parse_table_1494; ts_parse_table_1495;
   ts_parse_table_1496; ts_parse_table_1497; ts_parse_table_1498; ts_parse_table_1499;
   ts_parse_table_1500; ts_parse_table_1501; ts_parse_table_1502; ts_parse_table_1503;
   ts_parse_table_1504; ts_parse_table_1505; ts_parse_table_1506; ts_parse_table_1507;
   ts_parse_table_1508; ts_parse_table_1509; ts_parse_table_1510; ts_parse_table_1511;
   ts_parse_table_1512; ts_parse_table_1513; ts_parse_table_1514; ts_parse_table_1515;
   ts_parse_table_1516; ts_parse_table_1517; ts_parse_table_1518; ts_parse_table_1519;
   ts_parse_table_1520; ts_parse_table_1521; ts_parse_table_1522; ts_parse_table_1523;
   ts_parse_table_1524; ts_parse_table_1525; ts_parse_table_1526; ts_parse_table_1527;
   ts_parse_table_1528; ts_parse_table_1529; ts_parse_table_1530; ts_parse_table_1531;
   ts_parse_table_1532; ts_parse_table_1533; ts_parse_table_1534; ts_parse_table_1535;
   ts_parse_table_1536; ts_parse_table_1537; ts_parse_table_1538; ts_parse_table_1539;
   ts_parse_table_1540; ts_parse_table_1541; ts_parse_table_1542; ts_parse_table_1543;
   ts_parse_table_1544; ts_parse_table_1545; ts_parse_table_1546; ts_parse_table_1547;
   ts_parse_table_1548; ts_parse_table_1549; ts_parse_table_1550; ts_parse_table_1551;
   ts_parse_table_1552; ts_parse_table_1553; ts_parse_table_1554; ts_parse_table_1555;
   ts_parse_table_1556; ts_parse_table_1557; ts_parse_table_1558; ts_parse_table_1559;
   ts_parse_table_1560; ts_parse_table_1561; ts_parse_table_1562; ts_parse_table_1563;
   ts_parse_table_1564; ts_parse_table_1565; ts_parse_table_1566; ts_parse_table_1567;
   ts_parse_table_1568; ts_parse_table_1569; ts_parse_table_1570; ts_parse_table_1571
  ].
