(* ===== verification/ParseTable9.v ===== *)
(** * The parse table of [parser.c], states 1572 to 1858

    One definition for each row of [ts_parse_table], with the initializers of
    the row in the order of the source; consecutive initializers of the same
    value are one group. *)

From S2P Require Import Prelude.
From S2P Require Import Symbols.
From S2P Require Import ParseTypes.

(** State 1572. *)
Definition ts_parse_table_1572 : parse_row :=
  [STATE 2265 [sym__procAttribute]; STATE 14480 [sym_procAttribute];
   STATE 1586 [sym_procExternal; aux_sym_declVar_repeat2]; ACTIONS 11956 [anon_sym_LBRACK];
   ACTIONS 5221 [aux_sym_ppUsesBlock_token1]; ACTIONS 3 [sym__space];
   ACTIONS 5 [sym_ppDirective]; ACTIONS 3 [sym_comment]; ACTIONS 5221 [sym_identifier];
   ACTIONS 5228 [sym_kDefault; sym_kNodefault]; ACTIONS 5231 [sym_kDispId];
   ACTIONS 5221 [sym_kGeneric; sym_kOperator]; ACTIONS 5234 [sym_kPublic];
   ACTIONS 5228 [sym_kStatic; sym_kVirtual; sym_kAbstract; sym_kDynamic; sym_kOverride;
   sym_kOverload; sym_kReintroduce; sym_kStdcall; sym_kCdecl; sym_kCppdecl; sym_kPascal;
   sym_kRegister; sym_kMwpascal]; ACTIONS 11862 [sym_kExternal]; ACTIONS 5237 [sym_kMessage];
   ACTIONS 5240 [sym_kDeprecated]; ACTIONS 5228 [sym_kExperimental; sym_kPlatform;
   sym_kUnimplemented; sym_kCvar]; ACTIONS 5243 [sym_kExport]; ACTIONS 5228 [sym_kFar; sym_kNear;
   sym_kSafecall; sym_kAssembler; sym_kNostackframe; sym_kInterrupt; sym_kNoreturn; sym_kIocheck;
   sym_kLocal; sym_kHardfloat; sym_kSoftfloat; sym_kMs_abi_default; sym_kMs_abi_cdecl;
   sym_kSaveregisters; sym_kSysv_abi_default; sym_kSysv_abi_cdecl; sym_kVectorcall; sym_kVarargs;
   sym_kWinapi]; ACTIONS 5246 [sym_kAlias]; ACTIONS 5221 [sym_kClass; sym_kConst;
   sym_kConstructor; sym_kDestructor; sym_kEnd; sym_kExports; sym_kFinalization; sym_kFunction;
   sym_kImplementation; sym_kInitialization]; ACTIONS 1016 [sym_kInline];
   ACTIONS 5221 [sym_kInterface; sym_kLabel; sym_kProcedure; sym_kProperty; sym_kResourcestring;
   sym_kThreadvar; sym_kType; sym_kUses; sym_kVar]].

(** State 1573. *)
Definition ts_parse_table_1573 : parse_row :=
  [STATE 2265 [sym__procAttribute]; STATE 14480 [sym_procAttribute];
   STATE 1587 [sym_procExternal; aux_sym_declVar_repeat2]; ACTIONS 11959 [anon_sym_LBRACK];
   ACTIONS 5308 [aux_sym_ppUsesBlock_token1]; ACTIONS 3 [sym__space];
   ACTIONS 5 [sym_ppDirective]; ACTIONS 3 [sym_comment]; ACTIONS 5308 [sym_identifier];
   ACTIONS 5315 [sym_kDefault; sym_kNodefault]; ACTIONS 5318 [sym_kDispId];
   ACTIONS 5308 [sym_kGeneric; sym_kOperator]; ACTIONS 5321 [sym_kPublic];
   ACTIONS 5315 [sym_kStatic; sym_kVirtual; sym_kAbstract; sym_kDynamic; sym_kOverride;
   sym_kOverload; sym_kReintroduce; sym_kStdcall; sym_kCdecl; sym_kCppdecl; sym_kPascal;
   sym_kRegister; sym_kMwpascal]; ACTIONS 11862 [sym_kExternal]; ACTIONS 5324 [sym_kMessage];
   ACTIONS 5327 [sym_kDeprecated]; ACTIONS 5315 [sym_kExperimental; sym_kPlatform;
   sym_kUnimplemented; sym_kCvar]; ACTIONS 5330 [sym_kExport]; ACTIONS 5315 [sym_kFar; sym_kNear;
   sym_kSafecall; sym_kAssembler; sym_kNostackframe; sym_kInterrupt; sym_kNoreturn; sym_kIocheck;
   sym_kLocal; sym_kHardfloat; sym_kSoftfloat; sym_kMs_abi_default; sym_kMs_abi_cdecl;
   sym_kSaveregisters; sym_kSysv_abi_default; sym_kSysv_abi_cdecl; sym_kVectorcall; sym_kVarargs;
   sym_kWinapi]; ACTIONS 5333 [sym_kAlias]; ACTIONS 5308 [sym_kClass; sym_kConst;
   sym_kConstructor; sym_kDestructor; sym_kEnd; sym_kExports; sym_kFinalization; sym_kFunction;
   sym_kImplementation; sym_kInitialization]; ACTIONS 1016 [sym_kInline];
   ACTIONS 5308 [sym_kInterface; sym_kLabel; sym_kProcedure; sym_kProperty; sym_kResourcestring;
   sym_kThreadvar; sym_kType; sym_kUses; sym_kVar]].

(** State 1574. *)
Definition ts_parse_table_1574 : parse_row :=
  [STATE 2265 [sym__procAttribute]; STATE 14480 [sym_procAttribute];
   STATE 1683 [sym_procExternal; aux_sym_declVar_repeat2]; ACTIONS 11962 [anon_sym_LBRACK];
   ACTIONS 5373 [aux_sym_ppUsesBlock_token1]; ACTIONS 3 [sym__space];
   ACTIONS 5 [sym_ppDirective]; ACTIONS 3 [sym_comment]; ACTIONS 5373 [sym_identifier];
   ACTIONS 5380 [sym_kDefault; sym_kNodefault]; ACTIONS 5383 [sym_kDispId];
   ACTIONS 5373 [sym_kGeneric; sym_kOperator]; ACTIONS 5386 [sym_kPublic];
   ACTIONS 5380 [sym_kStatic; sym_kVirtual; sym_kAbstract; sym_kDynamic; sym_kOverride;
   sym_kOverload; sym_kReintroduce; sym_kStdcall; sym_kCdecl; sym_kCppdecl; sym_kPascal;
   sym_kRegister; sym_kMwpascal]; ACTIONS 11862 [sym_kExternal]; ACTIONS 5389 [sym_kMessage];
   ACTIONS 5392 [sym_kDeprecated]; ACTIONS 5380 [sym_kExperimental; sym_kPlatform;
   sym_kUnimplemented; sym_kCvar]; ACTIONS 5395 [sym_kExport]; ACTIONS 5380 [sym_kFar; sym_kNear;
   sym_kSafecall; sym_kAssembler; sym_kNostackframe; sym_kInterrupt; sym_kNoreturn; sym_kIocheck;
   sym_kLocal; sym_kHardfloat; sym_kSoftfloat; sym_kMs_abi_default; sym_kMs_abi_cdecl;
   sym_kSaveregisters; sym_kSysv_abi_default; sym_kSysv_abi_cdecl; sym_kVectorcall; sym_kVarargs;
   sym_kWinapi]; ACTIONS 5398 [sym_kAlias]; ACTIONS 5373 [sym_kClass; sym_kConst;
   sym_kConstructor; sym_kDestructor; sym_kEnd; sym_kExports; sym_kFinalization; sym_kFunction;
   sym_kImplementation; sym_kInitialization]; ACTIONS 1016 [sym_kInline];
   ACTIONS 5373 [sym_kInterface; sym_kLabel; sym_kProcedure; sym_kProperty; sym_kResourcestring;
   sym_kThreadvar; sym_kType; sym_kUses; sym_kVar]].

(** State 1575. *)
Definition ts_parse_table_1575 : parse_row :=
  [STATE 2265 [sym__procAttribute]; STATE 14480 [sym_procAttribute];
   STATE 1588 [sym_procExternal; aux_sym_declVar_repeat2]; ACTIONS 11965 [anon_sym_LBRACK];
   ACTIONS 5598 [aux_sym_ppUsesBlock_token1]; ACTIONS 3 [sym__space];
   ACTIONS 5 [sym_ppDirective]; ACTIONS 3 [sym_comment]; ACTIONS 5598 [sym_identifier];
   ACTIONS 5605 [sym_kDefault; sym_kNodefault]; ACTIONS 5608 [sym_kDispId];
   ACTIONS 5598 [sym_kGeneric; sym_kOperator]; ACTIONS 5611 [sym_kPublic];
   ACTIONS 5605 [sym_kStatic; sym_kVirtual; sym_kAbstract; sym_kDynamic; sym_kOverride;
   sym_kOverload; sym_kReintroduce; sym_kStdcall; sym_kCdecl; sym_kCppdecl; sym_kPascal;
   sym_kRegister; sym_kMwpascal]; ACTIONS 11862 [sym_kExternal]; ACTIONS 5614 [sym_kMessage];
   ACTIONS 5617 [sym_kDeprecated]; ACTIONS 5605 [sym_kExperimental; sym_kPlatform;
   sym_kUnimplemented; sym_kCvar]; ACTIONS 5620 [sym_kExport]; ACTIONS 5605 [sym_kFar; sym_kNear;
   sym_kSafecall; sym_kAssembler; sym_kNostackframe; sym_kInterrupt; sym_kNoreturn; sym_kIocheck;
   sym_kLocal; sym_kHardfloat; sym_kSoftfloat; sym_kMs_abi_default; sym_kMs_abi_cdecl;
   sym_kSaveregisters; sym_kSysv_abi_default; sym_kSysv_abi_cdecl; sym_kVectorcall; sym_kVarargs;
   sym_kWinapi]; ACTIONS 5623 [sym_kAlias]; ACTIONS 5598 [sym_kClass; sym_kConst;
   sym_kConstructor; sym_kDestructor; sym_kEnd; sym_kExports; sym_kFinalization; sym_kFunction;
   sym_kImplementation; sym_kInitialization]; ACTIONS 1016 [sym_kInline];
   ACTIONS 5598 [sym_kInterface; sym_kLabel; sym_kProcedure; sym_kProperty; sym_kResourcestring;
   sym_kThreadvar; sym_kType; sym_kUses; sym_kVar]].

(** State 1576. *)
Definition ts_parse_table_1576 : parse_row :=
  [STATE 2265 [sym__procAttribute]; STATE 14480 [sym_procAttribute];
   STATE 1683 [sym_procExternal; aux_sym_declVar_repeat2]; ACTIONS 11968 [anon_sym_LBRACK];
   ACTIONS 5797 [aux_sym_ppUsesBlock_token1]; ACTIONS 3 [sym__space];
   ACTIONS 5 [sym_ppDirective]; ACTIONS 3 [sym_comment]; ACTIONS 5797 [sym_identifier];
   ACTIONS 5804 [sym_kDefault; sym_kNodefault]; ACTIONS 5807 [sym_kDispId];
   ACTIONS 5797 [sym_kGeneric; sym_kOperator]; ACTIONS 5810 [sym_kPublic];
   ACTIONS 5804 [sym_kStatic; sym_kVirtual; sym_kAbstract; sym_kDynamic; sym_kOverride;
   sym_kOverload; sym_kReintroduce; sym_kStdcall; sym_kCdecl; sym_kCppdecl; sym_kPascal;
   sym_kRegister; sym_kMwpascal]; ACTIONS 11862 [sym_kExternal]; ACTIONS 5813 [sym_kMessage];
   ACTIONS 5816 [sym_kDeprecated]; ACTIONS 5804 [sym_kExperimental; sym_kPlatform;
   sym_kUnimplemented; sym_kCvar]; ACTIONS 5819 [sym_kExport]; ACTIONS 5804 [sym_kFar; sym_kNear;
   sym_kSafecall; sym_kAssembler; sym_kNostackframe; sym_kInterrupt; sym_kNoreturn; sym_kIocheck;
   sym_kLocal; sym_kHardfloat; sym_kSoftfloat; sym_kMs_abi_default; sym_kMs_abi_cdecl;
   sym_kSaveregisters; sym_kSysv_abi_default; sym_kSysv_abi_cdecl; sym_kVectorcall; sym_kVarargs;
   sym_kWinapi]; ACTIONS 5822 [sym_kAlias]; ACTIONS 5797 [sym_kClass; sym_kConst;
   sym_kConstructor; sym_kDestructor; sym_kEnd; sym_kExports; sym_kFinalization; sym_kFunction;
   sym_kImplementation; sym_kInitialization]; ACTIONS 1016 [sym_kInline];
   ACTIONS 5797 [sym_kInterface; sym_kLabel; sym_kProcedure; sym_kProperty; sym_kResourcestring;
   sym_kThreadvar; sym_kType; sym_kUses; sym_kVar]].

(** State 1577. *)
Definition ts_parse_table_1577 : parse_row :=
  [STATE 2251 [sym__procAttribute]; STATE 15882 [sym_procAttribute];
   STATE 1649 [sym_procExternal; aux_sym_declVar_repeat2]; ACTIONS 11971 [anon_sym_LBRACK];
   ACTIONS 4907 [aux_sym_ppUsesBlock_token1]; ACTIONS 3 [sym__space];
   ACTIONS 5 [sym_ppDirective]; ACTIONS 3 [sym_comment]; ACTIONS 4907 [sym_identifier];
   ACTIONS 4914 [sym_kDefault; sym_kNodefault]; ACTIONS 4917 [sym_kDispId];
   ACTIONS 4907 [sym_kGeneric; sym_kOperator; sym_kPublished]; ACTIONS 4920 [sym_kPublic];
   ACTIONS 4907 [sym_kProtected; sym_kPrivate; sym_kStrict; sym_kRequired; sym_kOptional];
   ACTIONS 4914 [sym_kStatic; sym_kVirtual; sym_kAbstract; sym_kDynamic; sym_kOverride;
   sym_kOverload; sym_kReintroduce; sym_kStdcall; sym_kCdecl; sym_kCppdecl; sym_kPascal;
   sym_kRegister; sym_kMwpascal]; ACTIONS 11857 [sym_kExternal]; ACTIONS 4923 [sym_kMessage];
   ACTIONS 4926 [sym_kDeprecated]; ACTIONS 4914 [sym_kExperimental; sym_kPlatform;
   sym_kUnimplemented; sym_kCvar]; ACTIONS 4929 [sym_kExport]; ACTIONS 4914 [sym_kFar; sym_kNear;
   sym_kSafecall; sym_kAssembler; sym_kNostackframe; sym_kInterrupt; sym_kNoreturn; sym_kIocheck;
   sym_kLocal; sym_kHardfloat; sym_kSoftfloat; sym_kMs_abi_default; sym_kMs_abi_cdecl;
   sym_kSaveregisters; sym_kSysv_abi_default; sym_kSysv_abi_cdecl; sym_kVectorcall; sym_kVarargs;
   sym_kWinapi]; ACTIONS 4932 [sym_kAlias]; ACTIONS 4907 [sym_kCase; sym_kClass; sym_kConst;
   sym_kConstructor; sym_kDestructor; sym_kEnd; sym_kFunction]; ACTIONS 1016 [sym_kInline];
   ACTIONS 4907 [sym_kProcedure; sym_kProperty; sym_kResourcestring; sym_kThreadvar; sym_kType;
   sym_kVar]].

(** State 1578. *)
Definition ts_parse_table_1578 : parse_row :=
  [STATE 2251 [sym__procAttribute]; STATE 15882 [sym_procAttribute];
   STATE 1593 [sym_procExternal; aux_sym_declVar_repeat2]; ACTIONS 11974 [anon_sym_LBRACK];
   ACTIONS 5106 [aux_sym_ppUsesBlock_token1]; ACTIONS 3 [sym__space];
   ACTIONS 5 [sym_ppDirective]; ACTIONS 3 [sym_comment]; ACTIONS 5106 [sym_identifier];
   ACTIONS 5113 [sym_kDefault; sym_kNodefault]; ACTIONS 5116 [sym_kDispId];
   ACTIONS 5106 [sym_kGeneric; sym_kOperator; sym_kPublished]; ACTIONS 5119 [sym_kPublic];
   ACTIONS 5106 [sym_kProtected; sym_kPrivate; sym_kStrict; sym_kRequired; sym_kOptional];
   ACTIONS 5113 [sym_kStatic; sym_kVirtual; sym_kAbstract; sym_kDynamic; sym_kOverride;
   sym_kOverload; sym_kReintroduce; sym_kStdcall; sym_kCdecl; sym_kCppdecl; sym_kPascal;
   sym_kRegister; sym_kMwpascal]; ACTIONS 11857 [sym_kExternal]; ACTIONS 5122 [sym_kMessage];
   ACTIONS 5125 [sym_kDeprecated]; ACTIONS 5113 [sym_kExperimental; sym_kPlatform;
   sym_kUnimplemented; sym_kCvar]; ACTIONS 5128 [sym_kExport]; ACTIONS 5113 [sym_kFar; sym_kNear;
   sym_kSafecall; sym_kAssembler; sym_kNostackframe; sym_kInterrupt; sym_kNoreturn; sym_kIocheck;
   sym_kLocal; sym_kHardfloat; sym_kSoftfloat; sym_kMs_abi_default; sym_kMs_abi_cdecl;
   sym_kSaveregisters; sym_kSysv_abi_default; sym_kSysv_abi_cdecl; sym_kVectorcall; sym_kVarargs;
   sym_kWinapi]; ACTIONS 5131 [sym_kAlias]; ACTIONS 5106 [sym_kCase; sym_kClass; sym_kConst;
   sym_kConstructor; sym_kDestructor; sym_kEnd; sym_kFunction]; ACTIONS 1016 [sym_kInline];
   ACTIONS 5106 [sym_kProcedure; sym_kProperty; sym_kResourcestring; sym_kThreadvar; sym_kType;
   sym_kVar]].

(** State 1579. *)
Definition ts_parse_table_1579 : parse_row :=
  [STATE 2251 [sym__procAttribute]; STATE 15882 [sym_procAttribute];
   STATE 1649 [sym_procExternal; aux_sym_declVar_repeat2]; ACTIONS 11977 [anon_sym_LBRACK];
   ACTIONS 5134 [aux_sym_ppUsesBlock_token1]; ACTIONS 3 [sym__space];
   ACTIONS 5 [sym_ppDirective]; ACTIONS 3 [sym_comment]; ACTIONS 5134 [sym_identifier];
   ACTIONS 5141 [sym_kDefault; sym_kNodefault]; ACTIONS 5144 [sym_kDispId];
   ACTIONS 5134 [sym_kGeneric; sym_kOperator; sym_kPublished]; ACTIONS 5147 [sym_kPublic];
   ACTIONS 5134 [sym_kProtected; sym_kPrivate; sym_kStrict; sym_kRequired; sym_kOptional];
   ACTIONS 5141 [sym_kStatic; sym_kVirtual; sym_kAbstract; sym_kDynamic; sym_kOverride;
   sym_kOverload; sym_kReintroduce; sym_kStdcall; sym_kCdecl; sym_kCppdecl; sym_kPascal;
   sym_kRegister; sym_kMwpascal]; ACTIONS 11857 [sym_kExternal]; ACTIONS 5150 [sym_kMessage];
   ACTIONS 5153 [sym_kDeprecated]; ACTIONS 5141 [sym_kExperimental; sym_kPlatform;
   sym_kUnimplemented; sym_kCvar]; ACTIONS 5156 [sym_kExport]; ACTIONS 5141 [sym_kFar; sym_kNear;
   sym_kSafecall; sym_kAssembler; sym_kNostackframe; sym_kInterrupt; sym_kNoreturn; sym_kIocheck;
   sym_kLocal; sym_kHardfloat; sym_kSoftfloat; sym_kMs_abi_default; sym_kMs_abi_cdecl;
   sym_kSaveregisters; sym_kSysv_abi_default; sym_kSysv_abi_cdecl; sym_kVectorcall; sym_kVarargs;
   sym_kWinapi]; ACTIONS 5159 [sym_kAlias]; ACTIONS 5134 [sym_kCase; sym_kClass; sym_kConst;
   sym_kConstructor; sym_kDestructor; sym_kEnd; sym_kFunction]; ACTIONS 1016 [sym_kInline];
   ACTIONS 5134 [sym_kProcedure; sym_kProperty; sym_kResourcestring; sym_kThreadvar; sym_kType;
   sym_kVar]].

(** State 1580. *)
Definition ts_parse_table_1580 : parse_row :=
  [STATE 2189 [sym__procAttribute]; STATE 14259 [sym_procAttribute];
   STATE 1594 [sym_procExternal; aux_sym_declVar_repeat2]; ACTIONS 11980 [anon_sym_LBRACK];
   ACTIONS 4029 [aux_sym_ppUsesBlock_token1]; ACTIONS 3 [sym__space];
   ACTIONS 5 [sym_ppDirective]; ACTIONS 3 [sym_comment]; ACTIONS 4029 [sym_identifier];
   ACTIONS 4036 [sym_kDefault; sym_kNodefault]; ACTIONS 4039 [sym_kDispId];
   ACTIONS 4029 [sym_kGeneric; sym_kOperator]; ACTIONS 4042 [sym_kPublic];
   ACTIONS 4036 [sym_kStatic; sym_kVirtual; sym_kAbstract; sym_kDynamic; sym_kOverride;
   sym_kOverload; sym_kReintroduce; sym_kStdcall; sym_kCdecl; sym_kCppdecl; sym_kPascal;
   sym_kRegister; sym_kMwpascal]; ACTIONS 11924 [sym_kExternal]; ACTIONS 4045 [sym_kMessage];
   ACTIONS 4048 [sym_kDeprecated]; ACTIONS 4036 [sym_kExperimental; sym_kPlatform;
   sym_kUnimplemented; sym_kCvar]; ACTIONS 4051 [sym_kExport]; ACTIONS 4036 [sym_kFar; sym_kNear;
   sym_kSafecall; sym_kAssembler; sym_kNostackframe; sym_kInterrupt; sym_kNoreturn; sym_kIocheck;
   sym_kLocal; sym_kHardfloat; sym_kSoftfloat; sym_kMs_abi_default; sym_kMs_abi_cdecl;
   sym_kSaveregisters; sym_kSysv_abi_default; sym_kSysv_abi_cdecl; sym_kVectorcall; sym_kVarargs;
   sym_kWinapi]; ACTIONS 4054 [sym_kAlias]; ACTIONS 4029 [sym_kBegin; sym_kClass; sym_kConst;
   sym_kConstructor; sym_kDestructor; sym_kEnd; sym_kExports; sym_kFinalization; sym_kFunction;
   sym_kImplementation; sym_kInitialization]; ACTIONS 1016 [sym_kInline];
   ACTIONS 4029 [sym_kInterface; sym_kLabel; sym_kProcedure; sym_kResourcestring; sym_kThreadvar;
   sym_kType; sym_kUses; sym_kVar]].

(** State 1581. *)
Definition ts_parse_table_1581 : parse_row :=
  [STATE 2265 [sym__procAttribute]; STATE 14480 [sym_procAttribute];
   STATE 1683 [sym_procExternal; aux_sym_declVar_repeat2]; ACTIONS 11983 [anon_sym_LBRACK];
   ACTIONS 4674 [aux_sym_ppUsesBlock_token1]; ACTIONS 3 [sym__space];
   ACTIONS 5 [sym_ppDirective]; ACTIONS 3 [sym_comment]; ACTIONS 4674 [sym_identifier];
   ACTIONS 4681 [sym_kDefault; sym_kNodefault]; ACTIONS 4684 [sym_kDispId];
   ACTIONS 4674 [sym_kGeneric; sym_kOperator]; ACTIONS 4687 [sym_kPublic];
   ACTIONS 4681 [sym_kStatic; sym_kVirtual; sym_kAbstract; sym_kDynamic; sym_kOverride;
   sym_kOverload; sym_kReintroduce; sym_kStdcall; sym_kCdecl; sym_kCppdecl; sym_kPascal;
   sym_kRegister; sym_kMwpascal]; ACTIONS 11862 [sym_kExternal]; ACTIONS 4690 [sym_kMessage];
   ACTIONS 4693 [sym_kDeprecated]; ACTIONS 4681 [sym_kExperimental; sym_kPlatform;
   sym_kUnimplemented; sym_kCvar]; ACTIONS 4696 [sym_kExport]; ACTIONS 4681 [sym_kFar; sym_kNear;
   sym_kSafecall; sym_kAssembler; sym_kNostackframe; sym_kInterrupt; sym_kNoreturn; sym_kIocheck;
   sym_kLocal; sym_kHardfloat; sym_kSoftfloat; sym_kMs_abi_default; sym_kMs_abi_cdecl;
   sym_kSaveregisters; sym_kSysv_abi_default; sym_kSysv_abi_cdecl; sym_kVectorcall; sym_kVarargs;
   sym_kWinapi]; ACTIONS 4699 [sym_kAlias]; ACTIONS 4674 [sym_kClass; sym_kConst;
   sym_kConstructor; sym_kDestructor; sym_kEnd; sym_kExports; sym_kFinalization; sym_kFunction;
   sym_kImplementation; sym_kInitialization]; ACTIONS 1016 [sym_kInline];
   ACTIONS 4674 [sym_kInterface; sym_kLabel; sym_kProcedure; sym_kProperty; sym_kResourcestring;
   sym_kThreadvar; sym_kType; sym_kUses; sym_kVar]].

(** State 1582. *)
Definition ts_parse_table_1582 : parse_row :=
  [STATE 2265 [sym__procAttribute]; STATE 14480 [sym_procAttribute];
   STATE 1683 [sym_procExternal; aux_sym_declVar_repeat2]; ACTIONS 11986 [anon_sym_LBRACK];
   ACTIONS 4733 [aux_sym_ppUsesBlock_token1]; ACTIONS 3 [sym__space];
   ACTIONS 5 [sym_ppDirective]; ACTIONS 3 [sym_comment]; ACTIONS 4733 [sym_identifier];
   ACTIONS 4740 [sym_kDefault; sym_kNodefault]; ACTIONS 4743 [sym_kDispId];
   ACTIONS 4733 [sym_kGeneric; sym_kOperator]; ACTIONS 4746 [sym_kPublic];
   ACTIONS 4740 [sym_kStatic; sym_kVirtual; sym_kAbstract; sym_kDynamic; sym_kOverride;
   sym_kOverload; sym_kReintroduce; sym_kStdcall; sym_kCdecl; sym_kCppdecl; sym_kPascal;
   sym_kRegister; sym_kMwpascal]; ACTIONS 11862 [sym_kExternal]; ACTIONS 4749 [sym_kMessage];
   ACTIONS 4752 [sym_kDeprecated]; ACTIONS 4740 [sym_kExperimental; sym_kPlatform;
   sym_kUnimplemented; sym_kCvar]; ACTIONS 4755 [sym_kExport]; ACTIONS 4740 [sym_kFar; sym_kNear;
   sym_kSafecall; sym_kAssembler; sym_kNostackframe; sym_kInterrupt; sym_kNoreturn; sym_kIocheck;
   sym_kLocal; sym_kHardfloat; sym_kSoftfloat; sym_kMs_abi_default; sym_kMs_abi_cdecl;
   sym_kSaveregisters; sym_kSysv_abi_default; sym_kSysv_abi_cdecl; sym_kVectorcall; sym_kVarargs;
   sym_kWinapi]; ACTIONS 4758 [sym_kAlias]; ACTIONS 4733 [sym_kClass; sym_kConst;
   sym_kConstructor; sym_kDestructor; sym_kEnd; sym_kExports; sym_kFinalization; sym_kFunction;
   sym_kImplementation; sym_kInitialization]; ACTIONS 1016 [sym_kInline];
   ACTIONS 4733 [sym_kInterface; sym_kLabel; sym_kProcedure; sym_kProperty; sym_kResourcestring;
   sym_kThreadvar; sym_kType; sym_kUses; sym_kVar]].

(** State 1583. *)
Definition ts_parse_table_1583 : parse_row :=
  [STATE 2265 [sym__procAttribute]; STATE 14480 [sym_procAttribute];
   STATE 1590 [sym_procExternal; aux_sym_declVar_repeat2]; ACTIONS 11989 [anon_sym_LBRACK];
   ACTIONS 4851 [aux_sym_ppUsesBlock_token1]; ACTIONS 3 [sym__space];
   ACTIONS 5 [sym_ppDirective]; ACTIONS 3 [sym_comment]; ACTIONS 4851 [sym_identifier];
   ACTIONS 4858 [sym_kDefault; sym_kNodefault]; ACTIONS 4861 [sym_kDispId];
   ACTIONS 4851 [sym_kGeneric; sym_kOperator]; ACTIONS 4864 [sym_kPublic];
   ACTIONS 4858 [sym_kStatic; sym_kVirtual; sym_kAbstract; sym_kDynamic; sym_kOverride;
   sym_kOverload; sym_kReintroduce; sym_kStdcall; sym_kCdecl; sym_kCppdecl; sym_kPascal;
   sym_kRegister; sym_kMwpascal]; ACTIONS 11862 [sym_kExternal]; ACTIONS 4867 [sym_kMessage];
   ACTIONS 4870 [sym_kDeprecated]; ACTIONS 4858 [sym_kExperimental; sym_kPlatform;
   sym_kUnimplemented; sym_kCvar]; ACTIONS 4873 [sym_kExport]; ACTIONS 4858 [sym_kFar; sym_kNear;
   sym_kSafecall; sym_kAssembler; sym_kNostackframe; sym_kInterrupt; sym_kNoreturn; sym_kIocheck;
   sym_kLocal; sym_kHardfloat; sym_kSoftfloat; sym_kMs_abi_default; sym_kMs_abi_cdecl;
   sym_kSaveregisters; sym_kSysv_abi_default; sym_kSysv_abi_cdecl; sym_kVectorcall; sym_kVarargs;
   sym_kWinapi]; ACTIONS 4876 [sym_kAlias]; ACTIONS 4851 [sym_kClass; sym_kConst;
   sym_kConstructor; sym_kDestructor; sym_kEnd; sym_kExports; sym_kFinalization; sym_kFunction;
   sym_kImplementation; sym_kInitialization]; ACTIONS 1016 [sym_kInline];
   ACTIONS 4851 [sym_kInterface; sym_kLabel; sym_kProcedure; sym_kProperty; sym_kResourcestring;
   sym_kThreadvar; sym_kType; sym_kUses; sym_kVar]].

(** State 1584. *)
Definition ts_parse_table_1584 : parse_row :=
  [STATE 2265 [sym__procAttribute]; STATE 14480 [sym_procAttribute];
   STATE 1683 [sym_procExternal; aux_sym_declVar_repeat2]; ACTIONS 11992 [anon_sym_LBRACK];
   ACTIONS 4907 [aux_sym_ppUsesBlock_token1]; ACTIONS 3 [sym__space];
   ACTIONS 5 [sym_ppDirective]; ACTIONS 3 [sym_comment]; ACTIONS 4907 [sym_identifier];
   ACTIONS 4914 [sym_kDefault; sym_kNodefault]; ACTIONS 4917 [sym_kDispId];
   ACTIONS 4907 [sym_kGeneric; sym_kOperator]; ACTIONS 4920 [sym_kPublic];
   ACTIONS 4914 [sym_kStatic; sym_kVirtual; sym_kAbstract; sym_kDynamic; sym_kOverride;
   sym_kOverload; sym_kReintroduce; sym_kStdcall; sym_kCdecl; sym_kCppdecl; sym_kPascal;
   sym_kRegister; sym_kMwpascal]; ACTIONS 11862 [sym_kExternal]; ACTIONS 4923 [sym_kMessage];
   ACTIONS 4926 [sym_kDeprecated]; ACTIONS 4914 [sym_kExperimental; sym_kPlatform;
   sym_kUnimplemented; sym_kCvar]; ACTIONS 4929 [sym_kExport]; ACTIONS 4914 [sym_kFar; sym_kNear;
   sym_kSafecall; sym_kAssembler; sym_kNostackframe; sym_kInterrupt; sym_kNoreturn; sym_kIocheck;
   sym_kLocal; sym_kHardfloat; sym_kSoftfloat; sym_kMs_abi_default; sym_kMs_abi_cdecl;
   sym_kSaveregisters; sym_kSysv_abi_default; sym_kSysv_abi_cdecl; sym_kVectorcall; sym_kVarargs;
   sym_kWinapi]; ACTIONS 4932 [sym_kAlias]; ACTIONS 4907 [sym_kClass; sym_kConst;
   sym_kConstructor; sym_kDestructor; sym_kEnd; sym_kExports; sym_kFinalization; sym_kFunction;
   sym_kImplementation; sym_kInitialization]; ACTIONS 1016 [sym_kInline];
   ACTIONS 4907 [sym_kInterface; sym_kLabel; sym_kProcedure; sym_kProperty; sym_kResourcestring;
   sym_kThreadvar; sym_kType; sym_kUses; sym_kVar]].

(** State 1585. *)
Definition ts_parse_table_1585 : parse_row :=
  [STATE 2265 [sym__procAttribute]; STATE 14480 [sym_procAttribute];
   STATE 1591 [sym_procExternal; aux_sym_declVar_repeat2]; ACTIONS 11995 [anon_sym_LBRACK];
   ACTIONS 5106 [aux_sym_ppUsesBlock_token1]; ACTIONS 3 [sym__space];
   ACTIONS 5 [sym_ppDirective]; ACTIONS 3 [sym_comment]; ACTIONS 5106 [sym_identifier];
   ACTIONS 5113 [sym_kDefault; sym_kNodefault]; ACTIONS 5116 [sym_kDispId];
   ACTIONS 5106 [sym_kGeneric; sym_kOperator]; ACTIONS 5119 [sym_kPublic];
   ACTIONS 5113 [sym_kStatic; sym_kVirtual; sym_kAbstract; sym_kDynamic; sym_kOverride;
   sym_kOverload; sym_kReintroduce; sym_kStdcall; sym_kCdecl; sym_kCppdecl; sym_kPascal;
   sym_kRegister; sym_kMwpascal]; ACTIONS 11862 [sym_kExternal]; ACTIONS 5122 [sym_kMessage];
   ACTIONS 5125 [sym_kDeprecated]; ACTIONS 5113 [sym_kExperimental; sym_kPlatform;
   sym_kUnimplemented; sym_kCvar]; ACTIONS 5128 [sym_kExport]; ACTIONS 5113 [sym_kFar; sym_kNear;
   sym_kSafecall; sym_kAssembler; sym_kNostackframe; sym_kInterrupt; sym_kNoreturn; sym_kIocheck;
   sym_kLocal; sym_kHardfloat; sym_kSoftfloat; sym_kMs_abi_default; sym_kMs_abi_cdecl;
   sym_kSaveregisters; sym_kSysv_abi_default; sym_kSysv_abi_cdecl; sym_kVectorcall; sym_kVarargs;
   sym_kWinapi]; ACTIONS 5131 [sym_kAlias]; ACTIONS 5106 [sym_kClass; sym_kConst;
   sym_kConstructor; sym_kDestructor; sym_kEnd; sym_kExports; sym_kFinalization; sym_kFunction;
   sym_kImplementation; sym_kInitialization]; ACTIONS 1016 [sym_kInline];
   ACTIONS 5106 [sym_kInterface; sym_kLabel; sym_kProcedure; sym_kProperty; sym_kResourcestring;
   sym_kThreadvar; sym_kType; sym_kUses; sym_kVar]].

(** State 1586. *)
Definition ts_parse_table_1586 : parse_row :=
  [STATE 2265 [sym__procAttribute]; STATE 14480 [sym_procAttribute];
   STATE 1683 [sym_procExternal; aux_sym_declVar_repeat2]; ACTIONS 11998 [anon_sym_LBRACK];
   ACTIONS 5134 [aux_sym_ppUsesBlock_token1]; ACTIONS 3 [sym__space];
   ACTIONS 5 [sym_ppDirective]; ACTIONS 3 [sym_comment]; ACTIONS 5134 [sym_identifier];
   ACTIONS 5141 [sym_kDefault; sym_kNodefault]; ACTIONS 5144 [sym_kDispId];
   ACTIONS 5134 [sym_kGeneric; sym_kOperator]; ACTIONS 5147 [sym_kPublic];
   ACTIONS 5141 [sym_kStatic; sym_kVirtual; sym_kAbstract; sym_kDynamic; sym_kOverride;
   sym_kOverload; sym_kReintroduce; sym_kStdcall; sym_kCdecl; sym_kCppdecl; sym_kPascal;
   sym_kRegister; sym_kMwpascal]; ACTIONS 11862 [sym_kExternal]; ACTIONS 5150 [sym_kMessage];
   ACTIONS 5153 [sym_kDeprecated]; ACTIONS 5141 [sym_kExperimental; sym_kPlatform;
   sym_kUnimplemented; sym_kCvar]; ACTIONS 5156 [sym_kExport]; ACTIONS 5141 [sym_kFar; sym_kNear;
   sym_kSafecall; sym_kAssembler; sym_kNostackframe; sym_kInterrupt; sym_kNoreturn; sym_kIocheck;
   sym_kLocal; sym_kHardfloat; sym_kSoftfloat; sym_kMs_abi_default; sym_kMs_abi_cdecl;
   sym_kSaveregisters; sym_kSysv_abi_default; sym_kSysv_abi_cdecl; sym_kVectorcall; sym_kVarargs;
   sym_kWinapi]; ACTIONS 5159 [sym_kAlias]; ACTIONS 5134 [sym_kClass; sym_kConst;
   sym_kConstructor; sym_kDestructor; sym_kEnd; sym_kExports; sym_kFinalization; sym_kFunction;
   sym_kImplementation; sym_kInitialization]; ACTIONS 1016 [sym_kInline];
   ACTIONS 5134 [sym_kInterface; sym_kLabel; sym_kProcedure; sym_kProperty; sym_kResourcestring;
   sym_kThreadvar; sym_kType; sym_kUses; sym_kVar]].

(** State 1587. *)
Definition ts_parse_table_1587 : parse_row :=
  [STATE 2265 [sym__procAttribute]; STATE 14480 [sym_procAttribute];
   STATE 1683 [sym_procExternal; aux_sym_declVar_repeat2]; ACTIONS 12001 [anon_sym_LBRACK];
   ACTIONS 5162 [aux_sym_ppUsesBlock_token1]; ACTIONS 3 [sym__space];
   ACTIONS 5 [sym_ppDirective]; ACTIONS 3 [sym_comment]; ACTIONS 5162 [sym_identifier];
   ACTIONS 5169 [sym_kDefault; sym_kNodefault]; ACTIONS 5172 [sym_kDispId];
   ACTIONS 5162 [sym_kGeneric; sym_kOperator]; ACTIONS 5175 [sym_kPublic];
   ACTIONS 5169 [sym_kStatic; sym_kVirtual; sym_kAbstract; sym_kDynamic; sym_kOverride;
   sym_kOverload; sym_kReintroduce; sym_kStdcall; sym_kCdecl; sym_kCppdecl; sym_kPascal;
   sym_kRegister; sym_kMwpascal]; ACTIONS 11862 [sym_kExternal]; ACTIONS 5178 [sym_kMessage];
   ACTIONS 5181 [sym_kDeprecated]; ACTIONS 5169 [sym_kExperimental; sym_kPlatform;
   sym_kUnimplemented; sym_kCvar]; ACTIONS 5184 [sym_kExport]; ACTIONS 5169 [sym_kFar; sym_kNear;
   sym_kSafecall; sym_kAssembler; sym_kNostackframe; sym_kInterrupt; sym_kNoreturn; sym_kIocheck;
   sym_kLocal; sym_kHardfloat; sym_kSoftfloat; sym_kMs_abi_default; sym_kMs_abi_cdecl;
   sym_kSaveregisters; sym_kSysv_abi_default; sym_kSysv_abi_cdecl; sym_kVectorcall; sym_kVarargs;
   sym_kWinapi]; ACTIONS 5187 [sym_kAlias]; ACTIONS 5162 [sym_kClass; sym_kConst;
   sym_kConstructor; sym_kDestructor; sym_kEnd; sym_kExports; sym_kFinalization; sym_kFunction;
   sym_kImplementation; sym_kInitialization]; ACTIONS 1016 [sym_kInline];
   ACTIONS 5162 [sym_kInterface; sym_kLabel; sym_kProcedure; sym_kProperty; sym_kResourcestring;
   sym_kThreadvar; sym_kType; sym_kUses; sym_kVar]].

(** State 1588. *)
Definition ts_parse_table_1588 : parse_row :=
  [STATE 2265 [sym__procAttribute]; STATE 14480 [sym_procAttribute];
   STATE 1683 [sym_procExternal; aux_sym_declVar_repeat2]; ACTIONS 12004 [anon_sym_LBRACK];
   ACTIONS 5249 [aux_sym_ppUsesBlock_token1]; ACTIONS 3 [sym__space];
   ACTIONS 5 [sym_ppDirective]; ACTIONS 3 [sym_comment]; ACTIONS 5249 [sym_identifier];
   ACTIONS 5256 [sym_kDefault; sym_kNodefault]; ACTIONS 5259 [sym_kDispId];
   ACTIONS 5249 [sym_kGeneric; sym_kOperator]; ACTIONS 5262 [sym_kPublic];
   ACTIONS 5256 [sym_kStatic; sym_kVirtual; sym_kAbstract; sym_kDynamic; sym_kOverride;
   sym_kOverload; sym_kReintroduce; sym_kStdcall; sym_kCdecl; sym_kCppdecl; sym_kPascal;
   sym_kRegister; sym_kMwpascal]; ACTIONS 11862 [sym_kExternal]; ACTIONS 5265 [sym_kMessage];
   ACTIONS 5268 [sym_kDeprecated]; ACTIONS 5256 [sym_kExperimental; sym_kPlatform;
   sym_kUnimplemented; sym_kCvar]; ACTIONS 5271 [sym_kExport]; ACTIONS 5256 [sym_kFar; sym_kNear;
   sym_kSafecall; sym_kAssembler; sym_kNostackframe; sym_kInterrupt; sym_kNoreturn; sym_kIocheck;
   sym_kLocal; sym_kHardfloat; sym_kSoftfloat; sym_kMs_abi_default; sym_kMs_abi_cdecl;
   sym_kSaveregisters; sym_kSysv_abi_default; sym_kSysv_abi_cdecl; sym_kVectorcall; sym_kVarargs;
   sym_kWinapi]; ACTIONS 5274 [sym_kAlias]; ACTIONS 5249 [sym_kClass; sym_kConst;
   sym_kConstructor; sym_kDestructor; sym_kEnd; sym_kExports; sym_kFinalization; sym_kFunction;
   sym_kImplementation; sym_kInitialization]; ACTIONS 1016 [sym_kInline];
   ACTIONS 5249 [sym_kInterface; sym_kLabel; sym_kProcedure; sym_kProperty; sym_kResourcestring;
   sym_kThreadvar; sym_kType; sym_kUses; sym_kVar]].

(** State 1589. *)
Definition ts_parse_table_1589 : parse_row :=
  [STATE 2265 [sym__procAttribute]; STATE 14480 [sym_procAttribute];
   STATE 1599 [sym_procExternal; aux_sym_declVar_repeat2]; ACTIONS 12007 [anon_sym_LBRACK];
   ACTIONS 4029 [aux_sym_ppUsesBlock_token1]; ACTIONS 3 [sym__space];
   ACTIONS 5 [sym_ppDirective]; ACTIONS 3 [sym_comment]; ACTIONS 4029 [sym_identifier];
   ACTIONS 4036 [sym_kDefault; sym_kNodefault]; ACTIONS 4039 [sym_kDispId];
   ACTIONS 4029 [sym_kGeneric; sym_kOperator]; ACTIONS 4042 [sym_kPublic];
   ACTIONS 4036 [sym_kStatic; sym_kVirtual; sym_kAbstract; sym_kDynamic; sym_kOverride;
   sym_kOverload; sym_kReintroduce; sym_kStdcall; sym_kCdecl; sym_kCppdecl; sym_kPascal;
   sym_kRegister; sym_kMwpascal]; ACTIONS 11862 [sym_kExternal]; ACTIONS 4045 [sym_kMessage];
   ACTIONS 4048 [sym_kDeprecated]; ACTIONS 4036 [sym_kExperimental; sym_kPlatform;
   sym_kUnimplemented; sym_kCvar]; ACTIONS 4051 [sym_kExport]; ACTIONS 4036 [sym_kFar; sym_kNear;
   sym_kSafecall; sym_kAssembler; sym_kNostackframe; sym_kInterrupt; sym_kNoreturn; sym_kIocheck;
   sym_kLocal; sym_kHardfloat; sym_kSoftfloat; sym_kMs_abi_default; sym_kMs_abi_cdecl;
   sym_kSaveregisters; sym_kSysv_abi_default; sym_kSysv_abi_cdecl; sym_kVectorcall; sym_kVarargs;
   sym_kWinapi]; ACTIONS 4054 [sym_kAlias]; ACTIONS 4029 [sym_kClass; sym_kConst;
   sym_kConstructor; sym_kDestructor; sym_kEnd; sym_kExports; sym_kFinalization; sym_kFunction;
   sym_kImplementation; sym_kInitialization]; ACTIONS 1016 [sym_kInline];
   ACTIONS 4029 [sym_kInterface; sym_kLabel; sym_kProcedure; sym_kProperty; sym_kResourcestring;
   sym_kThreadvar; sym_kType; sym_kUses; sym_kVar]].

(** State 1590. *)
Definition ts_parse_table_1590 : parse_row :=
  [STATE 2265 [sym__procAttribute]; STATE 14480 [sym_procAttribute];
   STATE 1683 [sym_procExternal; aux_sym_declVar_repeat2]; ACTIONS 12010 [anon_sym_LBRACK];
   ACTIONS 5722 [aux_sym_ppUsesBlock_token1]; ACTIONS 3 [sym__space];
   ACTIONS 5 [sym_ppDirective]; ACTIONS 3 [sym_comment]; ACTIONS 5722 [sym_identifier];
   ACTIONS 5729 [sym_kDefault; sym_kNodefault]; ACTIONS 5732 [sym_kDispId];
   ACTIONS 5722 [sym_kGeneric; sym_kOperator]; ACTIONS 5735 [sym_kPublic];
   ACTIONS 5729 [sym_kStatic; sym_kVirtual; sym_kAbstract; sym_kDynamic; sym_kOverride;
   sym_kOverload; sym_kReintroduce; sym_kStdcall; sym_kCdecl; sym_kCppdecl; sym_kPascal;
   sym_kRegister; sym_kMwpascal]; ACTIONS 11862 [sym_kExternal]; ACTIONS 5738 [sym_kMessage];
   ACTIONS 5741 [sym_kDeprecated]; ACTIONS 5729 [sym_kExperimental; sym_kPlatform;
   sym_kUnimplemented; sym_kCvar]; ACTIONS 5744 [sym_kExport]; ACTIONS 5729 [sym_kFar; sym_kNear;
   sym_kSafecall; sym_kAssembler; sym_kNostackframe; sym_kInterrupt; sym_kNoreturn; sym_kIocheck;
   sym_kLocal; sym_kHardfloat; sym_kSoftfloat; sym_kMs_abi_default; sym_kMs_abi_cdecl;
   sym_kSaveregisters; sym_kSysv_abi_default; sym_kSysv_abi_cdecl; sym_kVectorcall; sym_kVarargs;
   sym_kWinapi]; ACTIONS 5747 [sym_kAlias]; ACTIONS 5722 [sym_kClass; sym_kConst;
   sym_kConstructor; sym_kDestructor; sym_kEnd; sym_kExports; sym_kFinalization; sym_kFunction;
   sym_kImplementation; sym_kInitialization]; ACTIONS 1016 [sym_kInline];
   ACTIONS 5722 [sym_kInterface; sym_kLabel; sym_kProcedure; sym_kProperty; sym_kResourcestring;
   sym_kThreadvar; sym_kType; sym_kUses; sym_kVar]].

(** State 1591. *)
Definition ts_parse_table_1591 : parse_row :=
  [STATE 2265 [sym__procAttribute]; STATE 14480 [sym_procAttribute];
   STATE 1683 [sym_procExternal; aux_sym_declVar_repeat2]; ACTIONS 12013 [anon_sym_LBRACK];
   ACTIONS 7356 [aux_sym_ppUsesBlock_token1]; ACTIONS 3 [sym__space];
   ACTIONS 5 [sym_ppDirective]; ACTIONS 3 [sym_comment]; ACTIONS 7356 [sym_identifier];
   ACTIONS 7363 [sym_kDefault; sym_kNodefault]; ACTIONS 7366 [sym_kDispId];
   ACTIONS 7356 [sym_kGeneric; sym_kOperator]; ACTIONS 7369 [sym_kPublic];
   ACTIONS 7363 [sym_kStatic; sym_kVirtual; sym_kAbstract; sym_kDynamic; sym_kOverride;
   sym_kOverload; sym_kReintroduce; sym_kStdcall; sym_kCdecl; sym_kCppdecl; sym_kPascal;
   sym_kRegister; sym_kMwpascal]; ACTIONS 11862 [sym_kExternal]; ACTIONS 7372 [sym_kMessage];
   ACTIONS 7375 [sym_kDeprecated]; ACTIONS 7363 [sym_kExperimental; sym_kPlatform;
   sym_kUnimplemented; sym_kCvar]; ACTIONS 7378 [sym_kExport]; ACTIONS 7363 [sym_kFar; sym_kNear;
   sym_kSafecall; sym_kAssembler; sym_kNostackframe; sym_kInterrupt; sym_kNoreturn; sym_kIocheck;
   sym_kLocal; sym_kHardfloat; sym_kSoftfloat; sym_kMs_abi_default; sym_kMs_abi_cdecl;
   sym_kSaveregisters; sym_kSysv_abi_default; sym_kSysv_abi_cdecl; sym_kVectorcall; sym_kVarargs;
   sym_kWinapi]; ACTIONS 7381 [sym_kAlias]; ACTIONS 7356 [sym_kClass; sym_kConst;
   sym_kConstructor; sym_kDestructor; sym_kEnd; sym_kExports; sym_kFinalization; sym_kFunction;
   sym_kImplementation; sym_kInitialization]; ACTIONS 1016 [sym_kInline];
   ACTIONS 7356 [sym_kInterface; sym_kLabel; sym_kProcedure; sym_kProperty; sym_kResourcestring;
   sym_kThreadvar; sym_kType; sym_kUses; sym_kVar]].

(** State 1592. *)
Definition ts_parse_table_1592 : parse_row :=
  [STATE 2251 [sym__procAttribute]; STATE 15882 [sym_procAttribute];
   STATE 1649 [sym_procExternal; aux_sym_declVar_repeat2]; ACTIONS 12016 [anon_sym_LBRACK];
   ACTIONS 5722 [aux_sym_ppUsesBlock_token1]; ACTIONS 3 [sym__space];
   ACTIONS 5 [sym_ppDirective]; ACTIONS 3 [sym_comment]; ACTIONS 5722 [sym_identifier];
   ACTIONS 5729 [sym_kDefault; sym_kNodefault]; ACTIONS 5732 [sym_kDispId];
   ACTIONS 5722 [sym_kGeneric; sym_kOperator; sym_kPublished]; ACTIONS 5735 [sym_kPublic];
   ACTIONS 5722 [sym_kProtected; sym_kPrivate; sym_kStrict; sym_kRequired; sym_kOptional];
   ACTIONS 5729 [sym_kStatic; sym_kVirtual; sym_kAbstract; sym_kDynamic; sym_kOverride;
   sym_kOverload; sym_kReintroduce; sym_kStdcall; sym_kCdecl; sym_kCppdecl; sym_kPascal;
   sym_kRegister; sym_kMwpascal]; ACTIONS 11857 [sym_kExternal]; ACTIONS 5738 [sym_kMessage];
   ACTIONS 5741 [sym_kDeprecated]; ACTIONS 5729 [sym_kExperimental; sym_kPlatform;
   sym_kUnimplemented; sym_kCvar]; ACTIONS 5744 [sym_kExport]; ACTIONS 5729 [sym_kFar; sym_kNear;
   sym_kSafecall; sym_kAssembler; sym_kNostackframe; sym_kInterrupt; sym_kNoreturn; sym_kIocheck;
   sym_kLocal; sym_kHardfloat; sym_kSoftfloat; sym_kMs_abi_default; sym_kMs_abi_cdecl;
   sym_kSaveregisters; sym_kSysv_abi_default; sym_kSysv_abi_cdecl; sym_kVectorcall; sym_kVarargs;
   sym_kWinapi]; ACTIONS 5747 [sym_kAlias]; ACTIONS 5722 [sym_kCase; sym_kClass; sym_kConst;
   sym_kConstructor; sym_kDestructor; sym_kEnd; sym_kFunction]; ACTIONS 1016 [sym_kInline];
   ACTIONS 5722 [sym_kProcedure; sym_kProperty; sym_kResourcestring; sym_kThreadvar; sym_kType;
   sym_kVar]].

(** State 1593. *)
Definition ts_parse_table_1593 : parse_row :=
  [STATE 2251 [sym__procAttribute]; STATE 15882 [sym_procAttribute];
   STATE 1649 [sym_procExternal; aux_sym_declVar_repeat2]; ACTIONS 12019 [anon_sym_LBRACK];
   ACTIONS 7356 [aux_sym_ppUsesBlock_token1]; ACTIONS 3 [sym__space];
   ACTIONS 5 [sym_ppDirective]; ACTIONS 3 [sym_comment]; ACTIONS 7356 [sym_identifier];
   ACTIONS 7363 [sym_kDefault; sym_kNodefault]; ACTIONS 7366 [sym_kDispId];
   ACTIONS 7356 [sym_kGeneric; sym_kOperator; sym_kPublished]; ACTIONS 7369 [sym_kPublic];
   ACTIONS 7356 [sym_kProtected; sym_kPrivate; sym_kStrict; sym_kRequired; sym_kOptional];
   ACTIONS 7363 [sym_kStatic; sym_kVirtual; sym_kAbstract; sym_kDynamic; sym_kOverride;
   sym_kOverload; sym_kReintroduce; sym_kStdcall; sym_kCdecl; sym_kCppdecl; sym_kPascal;
   sym_kRegister; sym_kMwpascal]; ACTIONS 11857 [sym_kExternal]; ACTIONS 7372 [sym_kMessage];
   ACTIONS 7375 [sym_kDeprecated]; ACTIONS 7363 [sym_kExperimental; sym_kPlatform;
   sym_kUnimplemented; sym_kCvar]; ACTIONS 7378 [sym_kExport]; ACTIONS 7363 [sym_kFar; sym_kNear;
   sym_kSafecall; sym_kAssembler; sym_kNostackframe; sym_kInterrupt; sym_kNoreturn; sym_kIocheck;
   sym_kLocal; sym_kHardfloat; sym_kSoftfloat; sym_kMs_abi_default; sym_kMs_abi_cdecl;
   sym_kSaveregisters; sym_kSysv_abi_default; sym_kSysv_abi_cdecl; sym_kVectorcall; sym_kVarargs;
   sym_kWinapi]; ACTIONS 7381 [sym_kAlias]; ACTIONS 7356 [sym_kCase; sym_kClass; sym_kConst;
   sym_kConstructor; sym_kDestructor; sym_kEnd; sym_kFunction]; ACTIONS 1016 [sym_kInline];
   ACTIONS 7356 [sym_kProcedure; sym_kProperty; sym_kResourcestring; sym_kThreadvar; sym_kType;
   sym_kVar]].

(** State 1594. *)
Definition ts_parse_table_1594 : parse_row :=
  [STATE 2189 [sym__procAttribute]; STATE 14259 [sym_procAttribute];
   STATE 1609 [sym_procExternal; aux_sym_declVar_repeat2]; ACTIONS 12022 [anon_sym_LBRACK];
   ACTIONS 6795 [aux_sym_ppUsesBlock_token1]; ACTIONS 3 [sym__space];
   ACTIONS 5 [sym_ppDirective]; ACTIONS 3 [sym_comment]; ACTIONS 6795 [sym_identifier];
   ACTIONS 6802 [sym_kDefault; sym_kNodefault]; ACTIONS 6805 [sym_kDispId];
   ACTIONS 6795 [sym_kGeneric; sym_kOperator]; ACTIONS 6808 [sym_kPublic];
   ACTIONS 6802 [sym_kStatic; sym_kVirtual; sym_kAbstract; sym_kDynamic; sym_kOverride;
   sym_kOverload; sym_kReintroduce; sym_kStdcall; sym_kCdecl; sym_kCppdecl; sym_kPascal;
   sym_kRegister; sym_kMwpascal]; ACTIONS 11924 [sym_kExternal]; ACTIONS 6811 [sym_kMessage];
   ACTIONS 6814 [sym_kDeprecated]; ACTIONS 6802 [sym_kExperimental; sym_kPlatform;
   sym_kUnimplemented; sym_kCvar]; ACTIONS 6817 [sym_kExport]; ACTIONS 6802 [sym_kFar; sym_kNear;
   sym_kSafecall; sym_kAssembler; sym_kNostackframe; sym_kInterrupt; sym_kNoreturn; sym_kIocheck;
   sym_kLocal; sym_kHardfloat; sym_kSoftfloat; sym_kMs_abi_default; sym_kMs_abi_cdecl;
   sym_kSaveregisters; sym_kSysv_abi_default; sym_kSysv_abi_cdecl; sym_kVectorcall; sym_kVarargs;
   sym_kWinapi]; ACTIONS 6820 [sym_kAlias]; ACTIONS 6795 [sym_kBegin; sym_kClass; sym_kConst;
   sym_kConstructor; sym_kDestructor; sym_kEnd; sym_kExports; sym_kFinalization; sym_kFunction;
   sym_kImplementation; sym_kInitialization]; ACTIONS 1016 [sym_kInline];
   ACTIONS 6795 [sym_kInterface; sym_kLabel; sym_kProcedure; sym_kResourcestring; sym_kThreadvar;
   sym_kType; sym_kUses; sym_kVar]].

(** State 1595. *)
Definition ts_parse_table_1595 : parse_row :=
  [STATE 2265 [sym__procAttribute]; STATE 14480 [sym_procAttribute];
   STATE 1555 [sym_procExternal; aux_sym_declVar_repeat2]; ACTIONS 12025 [anon_sym_LBRACK];
   ACTIONS 4085 [aux_sym_ppUsesBlock_token1]; ACTIONS 3 [sym__space];
   ACTIONS 5 [sym_ppDirective]; ACTIONS 3 [sym_comment]; ACTIONS 4085 [sym_identifier];
   ACTIONS 4092 [sym_kDefault; sym_kNodefault]; ACTIONS 4095 [sym_kDispId];
   ACTIONS 4085 [sym_kGeneric; sym_kOperator]; ACTIONS 4098 [sym_kPublic];
   ACTIONS 4092 [sym_kStatic; sym_kVirtual; sym_kAbstract; sym_kDynamic; sym_kOverride;
   sym_kOverload; sym_kReintroduce; sym_kStdcall; sym_kCdecl; sym_kCppdecl; sym_kPascal;
   sym_kRegister; sym_kMwpascal]; ACTIONS 11862 [sym_kExternal]; ACTIONS 4101 [sym_kMessage];
   ACTIONS 4104 [sym_kDeprecated]; ACTIONS 4092 [sym_kExperimental; sym_kPlatform;
   sym_kUnimplemented; sym_kCvar]; ACTIONS 4107 [sym_kExport]; ACTIONS 4092 [sym_kFar; sym_kNear;
   sym_kSafecall; sym_kAssembler; sym_kNostackframe; sym_kInterrupt; sym_kNoreturn; sym_kIocheck;
   sym_kLocal; sym_kHardfloat; sym_kSoftfloat; sym_kMs_abi_default; sym_kMs_abi_cdecl;
   sym_kSaveregisters; sym_kSysv_abi_default; sym_kSysv_abi_cdecl; sym_kVectorcall; sym_kVarargs;
   sym_kWinapi]; ACTIONS 4110 [sym_kAlias]; ACTIONS 4085 [sym_kClass; sym_kConst;
   sym_kConstructor; sym_kDestructor; sym_kEnd; sym_kExports; sym_kFinalization; sym_kFunction;
   sym_kImplementation; sym_kInitialization]; ACTIONS 1016 [sym_kInline];
   ACTIONS 4085 [sym_kInterface; sym_kLabel; sym_kProcedure; sym_kProperty; sym_kResourcestring;
   sym_kThreadvar; sym_kType; sym_kUses; sym_kVar]].

(** State 1596. *)
Definition ts_parse_table_1596 : parse_row :=
  [STATE 2251 [sym__procAttribute]; STATE 15882 [sym_procAttribute];
   STATE 1592 [sym_procExternal; aux_sym_declVar_repeat2]; ACTIONS 12028 [anon_sym_LBRACK];
   ACTIONS 4851 [aux_sym_ppUsesBlock_token1]; ACTIONS 3 [sym__space];
   ACTIONS 5 [sym_ppDirective]; ACTIONS 3 [sym_comment]; ACTIONS 4851 [sym_identifier];
   ACTIONS 4858 [sym_kDefault; sym_kNodefault]; ACTIONS 4861 [sym_kDispId];
   ACTIONS 4851 [sym_kGeneric; sym_kOperator; sym_kPublished]; ACTIONS 4864 [sym_kPublic];
   ACTIONS 4851 [sym_kProtected; sym_kPrivate; sym_kStrict; sym_kRequired; sym_kOptional];
   ACTIONS 4858 [sym_kStatic; sym_kVirtual; sym_kAbstract; sym_kDynamic; sym_kOverride;
   sym_kOverload; sym_kReintroduce; sym_kStdcall; sym_kCdecl; sym_kCppdecl; sym_kPascal;
   sym_kRegister; sym_kMwpascal]; ACTIONS 11857 [sym_kExternal]; ACTIONS 4867 [sym_kMessage];
   ACTIONS 4870 [sym_kDeprecated]; ACTIONS 4858 [sym_kExperimental; sym_kPlatform;
   sym_kUnimplemented; sym_kCvar]; ACTIONS 4873 [sym_kExport]; ACTIONS 4858 [sym_kFar; sym_kNear;
   sym_kSafecall; sym_kAssembler; sym_kNostackframe; sym_kInterrupt; sym_kNoreturn; sym_kIocheck;
   sym_kLocal; sym_kHardfloat; sym_kSoftfloat; sym_kMs_abi_default; sym_kMs_abi_cdecl;
   sym_kSaveregisters; sym_kSysv_abi_default; sym_kSysv_abi_cdecl; sym_kVectorcall; sym_kVarargs;
   sym_kWinapi]; ACTIONS 4876 [sym_kAlias]; ACTIONS 4851 [sym_kCase; sym_kClass; sym_kConst;
   sym_kConstructor; sym_kDestructor; sym_kEnd; sym_kFunction]; ACTIONS 1016 [sym_kInline];
   ACTIONS 4851 [sym_kProcedure; sym_kProperty; sym_kResourcestring; sym_kThreadvar; sym_kType;
   sym_kVar]].

(** State 1597. *)
Definition ts_parse_table_1597 : parse_row :=
  [STATE 2189 [sym__procAttribute]; STATE 14259 [sym_procAttribute];
   STATE 1610 [sym_procExternal; aux_sym_declVar_repeat2]; ACTIONS 12031 [anon_sym_LBRACK];
   ACTIONS 3755 [aux_sym_ppUsesBlock_token1]; ACTIONS 3 [sym__space];
   ACTIONS 5 [sym_ppDirective]; ACTIONS 3 [sym_comment]; ACTIONS 3755 [sym_identifier];
   ACTIONS 3762 [sym_kDefault; sym_kNodefault]; ACTIONS 3765 [sym_kDispId];
   ACTIONS 3755 [sym_kGeneric; sym_kOperator]; ACTIONS 3768 [sym_kPublic];
   ACTIONS 3762 [sym_kStatic; sym_kVirtual; sym_kAbstract; sym_kDynamic; sym_kOverride;
   sym_kOverload; sym_kReintroduce; sym_kStdcall; sym_kCdecl; sym_kCppdecl; sym_kPascal;
   sym_kRegister; sym_kMwpascal]; ACTIONS 11924 [sym_kExternal]; ACTIONS 3771 [sym_kMessage];
   ACTIONS 3774 [sym_kDeprecated]; ACTIONS 3762 [sym_kExperimental; sym_kPlatform;
   sym_kUnimplemented; sym_kCvar]; ACTIONS 3777 [sym_kExport]; ACTIONS 3762 [sym_kFar; sym_kNear;
   sym_kSafecall; sym_kAssembler; sym_kNostackframe; sym_kInterrupt; sym_kNoreturn; sym_kIocheck;
   sym_kLocal; sym_kHardfloat; sym_kSoftfloat; sym_kMs_abi_default; sym_kMs_abi_cdecl;
   sym_kSaveregisters; sym_kSysv_abi_default; sym_kSysv_abi_cdecl; sym_kVectorcall; sym_kVarargs;
   sym_kWinapi]; ACTIONS 3780 [sym_kAlias]; ACTIONS 3755 [sym_kBegin; sym_kClass; sym_kConst;
   sym_kConstructor; sym_kDestructor; sym_kEnd; sym_kExports; sym_kFinalization; sym_kFunction;
   sym_kImplementation; sym_kInitialization]; ACTIONS 1016 [sym_kInline];
   ACTIONS 3755 [sym_kInterface; sym_kLabel; sym_kProcedure; sym_kResourcestring; sym_kThreadvar;
   sym_kType; sym_kUses; sym_kVar]].

(** State 1598. *)
Definition ts_parse_table_1598 : parse_row :=
  [STATE 2251 [sym__procAttribute]; STATE 15882 [sym_procAttribute];
   STATE 1649 [sym_procExternal; aux_sym_declVar_repeat2]; ACTIONS 12034 [anon_sym_LBRACK];
   ACTIONS 4674 [aux_sym_ppUsesBlock_token1]; ACTIONS 3 [sym__space];
   ACTIONS 5 [sym_ppDirective]; ACTIONS 3 [sym_comment]; ACTIONS 4674 [sym_identifier];
   ACTIONS 4681 [sym_kDefault; sym_kNodefault]; ACTIONS 4684 [sym_kDispId];
   ACTIONS 4674 [sym_kGeneric; sym_kOperator; sym_kPublished]; ACTIONS 4687 [sym_kPublic];
   ACTIONS 4674 [sym_kProtected; sym_kPrivate; sym_kStrict; sym_kRequired; sym_kOptional];
   ACTIONS 4681 [sym_kStatic; sym_kVirtual; sym_kAbstract; sym_kDynamic; sym_kOverride;
   sym_kOverload; sym_kReintroduce; sym_kStdcall; sym_kCdecl; sym_kCppdecl; sym_kPascal;
   sym_kRegister; sym_kMwpascal]; ACTIONS 11857 [sym_kExternal]; ACTIONS 4690 [sym_kMessage];
   ACTIONS 4693 [sym_kDeprecated]; ACTIONS 4681 [sym_kExperimental; sym_kPlatform;
   sym_kUnimplemented; sym_kCvar]; ACTIONS 4696 [sym_kExport]; ACTIONS 4681 [sym_kFar; sym_kNear;
   sym_kSafecall; sym_kAssembler; sym_kNostackframe; sym_kInterrupt; sym_kNoreturn; sym_kIocheck;
   sym_kLocal; sym_kHardfloat; sym_kSoftfloat; sym_kMs_abi_default; sym_kMs_abi_cdecl;
   sym_kSaveregisters; sym_kSysv_abi_default; sym_kSysv_abi_cdecl; sym_kVectorcall; sym_kVarargs;
   sym_kWinapi]; ACTIONS 4699 [sym_kAlias]; ACTIONS 4674 [sym_kCase; sym_kClass; sym_kConst;
   sym_kConstructor; sym_kDestructor; sym_kEnd; sym_kFunction]; ACTIONS 1016 [sym_kInline];
   ACTIONS 4674 [sym_kProcedure; sym_kProperty; sym_kResourcestring; sym_kThreadvar; sym_kType;
   sym_kVar]].

(** State 1599. *)
Definition ts_parse_table_1599 : parse_row :=
  [STATE 2265 [sym__procAttribute]; STATE 14480 [sym_procAttribute];
   STATE 1683 [sym_procExternal; aux_sym_declVar_repeat2]; ACTIONS 12037 [anon_sym_LBRACK];
   ACTIONS 6795 [aux_sym_ppUsesBlock_token1]; ACTIONS 3 [sym__space];
   ACTIONS 5 [sym_ppDirective]; ACTIONS 3 [sym_comment]; ACTIONS 6795 [sym_identifier];
   ACTIONS 6802 [sym_kDefault; sym_kNodefault]; ACTIONS 6805 [sym_kDispId];
   ACTIONS 6795 [sym_kGeneric; sym_kOperator]; ACTIONS 6808 [sym_kPublic];
   ACTIONS 6802 [sym_kStatic; sym_kVirtual; sym_kAbstract; sym_kDynamic; sym_kOverride;
   sym_kOverload; sym_kReintroduce; sym_kStdcall; sym_kCdecl; sym_kCppdecl; sym_kPascal;
   sym_kRegister; sym_kMwpascal]; ACTIONS 11862 [sym_kExternal]; ACTIONS 6811 [sym_kMessage];
   ACTIONS 6814 [sym_kDeprecated]; ACTIONS 6802 [sym_kExperimental; sym_kPlatform;
   sym_kUnimplemented; sym_kCvar]; ACTIONS 6817 [sym_kExport]; ACTIONS 6802 [sym_kFar; sym_kNear;
   sym_kSafecall; sym_kAssembler; sym_kNostackframe; sym_kInterrupt; sym_kNoreturn; sym_kIocheck;
   sym_kLocal; sym_kHardfloat; sym_kSoftfloat; sym_kMs_abi_default; sym_kMs_abi_cdecl;
   sym_kSaveregisters; sym_kSysv_abi_default; sym_kSysv_abi_cdecl; sym_kVectorcall; sym_kVarargs;
   sym_kWinapi]; ACTIONS 6820 [sym_kAlias]; ACTIONS 6795 [sym_kClass; sym_kConst;
   sym_kConstructor; sym_kDestructor; sym_kEnd; sym_kExports; sym_kFinalization; sym_kFunction;
   sym_kImplementation; sym_kInitialization]; ACTIONS 1016 [sym_kInline];
   ACTIONS 6795 [sym_kInterface; sym_kLabel; sym_kProcedure; sym_kProperty; sym_kResourcestring;
   sym_kThreadvar; sym_kType; sym_kUses; sym_kVar]].

(** State 1600. *)
Definition ts_parse_table_1600 : parse_row :=
  [STATE 2189 [sym__procAttribute]; STATE 14259 [sym_procAttribute];
   STATE 1609 [sym_procExternal; aux_sym_declVar_repeat2]; ACTIONS 12040 [anon_sym_LBRACK];
   ACTIONS 3727 [aux_sym_ppUsesBlock_token1]; ACTIONS 3 [sym__space];
   ACTIONS 5 [sym_ppDirective]; ACTIONS 3 [sym_comment]; ACTIONS 3727 [sym_identifier];
   ACTIONS 3734 [sym_kDefault; sym_kNodefault]; ACTIONS 3737 [sym_kDispId];
   ACTIONS 3727 [sym_kGeneric; sym_kOperator]; ACTIONS 3740 [sym_kPublic];
   ACTIONS 3734 [sym_kStatic; sym_kVirtual; sym_kAbstract; sym_kDynamic; sym_kOverride;
   sym_kOverload; sym_kReintroduce; sym_kStdcall; sym_kCdecl; sym_kCppdecl; sym_kPascal;
   sym_kRegister; sym_kMwpascal]; ACTIONS 11924 [sym_kExternal]; ACTIONS 3743 [sym_kMessage];
   ACTIONS 3746 [sym_kDeprecated]; ACTIONS 3734 [sym_kExperimental; sym_kPlatform;
   sym_kUnimplemented; sym_kCvar]; ACTIONS 3749 [sym_kExport]; ACTIONS 3734 [sym_kFar; sym_kNear;
   sym_kSafecall; sym_kAssembler; sym_kNostackframe; sym_kInterrupt; sym_kNoreturn; sym_kIocheck;
   sym_kLocal; sym_kHardfloat; sym_kSoftfloat; sym_kMs_abi_default; sym_kMs_abi_cdecl;
   sym_kSaveregisters; sym_kSysv_abi_default; sym_kSysv_abi_cdecl; sym_kVectorcall; sym_kVarargs;
   sym_kWinapi]; ACTIONS 3752 [sym_kAlias]; ACTIONS 3727 [sym_kBegin; sym_kClass; sym_kConst;
   sym_kConstructor; sym_kDestructor; sym_kEnd; sym_kExports; sym_kFinalization; sym_kFunction;
   sym_kImplementation; sym_kInitialization]; ACTIONS 1016 [sym_kInline];
   ACTIONS 3727 [sym_kInterface; sym_kLabel; sym_kProcedure; sym_kResourcestring; sym_kThreadvar;
   sym_kType; sym_kUses; sym_kVar]].

(** State 1601. *)
Definition ts_parse_table_1601 : parse_row :=
  [STATE 2265 [sym__procAttribute]; STATE 14480 [sym_procAttribute];
   STATE 1620 [sym_procExternal; aux_sym_declVar_repeat2]; ACTIONS 12043 [anon_sym_LBRACK];
   ACTIONS 3755 [aux_sym_ppUsesBlock_token1]; ACTIONS 3 [sym__space];
   ACTIONS 5 [sym_ppDirective]; ACTIONS 3 [sym_comment]; ACTIONS 3755 [sym_identifier];
   ACTIONS 3762 [sym_kDefault; sym_kNodefault]; ACTIONS 3765 [sym_kDispId];
   ACTIONS 3755 [sym_kGeneric; sym_kOperator]; ACTIONS 3768 [sym_kPublic];
   ACTIONS 3762 [sym_kStatic; sym_kVirtual; sym_kAbstract; sym_kDynamic; sym_kOverride;
   sym_kOverload; sym_kReintroduce; sym_kStdcall; sym_kCdecl; sym_kCppdecl; sym_kPascal;
   sym_kRegister; sym_kMwpascal]; ACTIONS 11862 [sym_kExternal]; ACTIONS 3771 [sym_kMessage];
   ACTIONS 3774 [sym_kDeprecated]; ACTIONS 3762 [sym_kExperimental; sym_kPlatform;
   sym_kUnimplemented; sym_kCvar]; ACTIONS 3777 [sym_kExport]; ACTIONS 3762 [sym_kFar; sym_kNear;
   sym_kSafecall; sym_kAssembler; sym_kNostackframe; sym_kInterrupt; sym_kNoreturn; sym_kIocheck;
   sym_kLocal; sym_kHardfloat; sym_kSoftfloat; sym_kMs_abi_default; sym_kMs_abi_cdecl;
   sym_kSaveregisters; sym_kSysv_abi_default; sym_kSysv_abi_cdecl; sym_kVectorcall; sym_kVarargs;
   sym_kWinapi]; ACTIONS 3780 [sym_kAlias]; ACTIONS 3755 [sym_kClass; sym_kConst;
   sym_kConstructor; sym_kDestructor; sym_kEnd; sym_kExports; sym_kFinalization; sym_kFunction;
   sym_kImplementation; sym_kInitialization]; ACTIONS 1016 [sym_kInline];
   ACTIONS 3755 [sym_kInterface; sym_kLabel; sym_kProcedure; sym_kProperty; sym_kResourcestring;
   sym_kThreadvar; sym_kType; sym_kUses; sym_kVar]].

(** State 1602. *)
Definition ts_parse_table_1602 : parse_row :=
  [STATE 2265 [sym__procAttribute]; STATE 14480 [sym_procAttribute];
   STATE 1563 [sym_procExternal; aux_sym_declVar_repeat2]; ACTIONS 12046 [anon_sym_LBRACK];
   ACTIONS 6525 [aux_sym_ppUsesBlock_token1]; ACTIONS 3 [sym__space];
   ACTIONS 5 [sym_ppDirective]; ACTIONS 3 [sym_comment]; ACTIONS 6525 [sym_identifier];
   ACTIONS 6532 [sym_kDefault; sym_kNodefault]; ACTIONS 6535 [sym_kDispId];
   ACTIONS 6525 [sym_kGeneric; sym_kOperator]; ACTIONS 6538 [sym_kPublic];
   ACTIONS 6532 [sym_kStatic; sym_kVirtual; sym_kAbstract; sym_kDynamic; sym_kOverride;
   sym_kOverload; sym_kReintroduce; sym_kStdcall; sym_kCdecl; sym_kCppdecl; sym_kPascal;
   sym_kRegister; sym_kMwpascal]; ACTIONS 11862 [sym_kExternal]; ACTIONS 6541 [sym_kMessage];
   ACTIONS 6544 [sym_kDeprecated]; ACTIONS 6532 [sym_kExperimental; sym_kPlatform;
   sym_kUnimplemented; sym_kCvar]; ACTIONS 6547 [sym_kExport]; ACTIONS 6532 [sym_kFar; sym_kNear;
   sym_kSafecall; sym_kAssembler; sym_kNostackframe; sym_kInterrupt; sym_kNoreturn; sym_kIocheck;
   sym_kLocal; sym_kHardfloat; sym_kSoftfloat; sym_kMs_abi_default; sym_kMs_abi_cdecl;
   sym_kSaveregisters; sym_kSysv_abi_default; sym_kSysv_abi_cdecl; sym_kVectorcall; sym_kVarargs;
   sym_kWinapi]; ACTIONS 6550 [sym_kAlias]; ACTIONS 6525 [sym_kClass; sym_kConst;
   sym_kConstructor; sym_kDestructor; sym_kEnd; sym_kExports; sym_kFinalization; sym_kFunction;
   sym_kImplementation; sym_kInitialization]; ACTIONS 1016 [sym_kInline];
   ACTIONS 6525 [sym_kInterface; sym_kLabel; sym_kProcedure; sym_kProperty; sym_kResourcestring;
   sym_kThreadvar; sym_kType; sym_kUses; sym_kVar]].

(** State 1603. *)
Definition ts_parse_table_1603 : parse_row :=
  [STATE 2189 [sym__procAttribute]; STATE 14259 [sym_procAttribute];
   STATE 1612 [sym_procExternal; aux_sym_declVar_repeat2]; ACTIONS 12049 [anon_sym_LBRACK];
   ACTIONS 4478 [aux_sym_ppUsesBlock_token1]; ACTIONS 3 [sym__space];
   ACTIONS 5 [sym_ppDirective]; ACTIONS 3 [sym_comment]; ACTIONS 4478 [sym_identifier];
   ACTIONS 4485 [sym_kDefault; sym_kNodefault]; ACTIONS 4488 [sym_kDispId];
   ACTIONS 4478 [sym_kGeneric; sym_kOperator]; ACTIONS 4491 [sym_kPublic];
   ACTIONS 4485 [sym_kStatic; sym_kVirtual; sym_kAbstract; sym_kDynamic; sym_kOverride;
   sym_kOverload; sym_kReintroduce; sym_kStdcall; sym_kCdecl; sym_kCppdecl; sym_kPascal;
   sym_kRegister; sym_kMwpascal]; ACTIONS 11924 [sym_kExternal]; ACTIONS 4494 [sym_kMessage];
   ACTIONS 4497 [sym_kDeprecated]; ACTIONS 4485 [sym_kExperimental; sym_kPlatform;
   sym_kUnimplemented; sym_kCvar]; ACTIONS 4500 [sym_kExport]; ACTIONS 4485 [sym_kFar; sym_kNear;
   sym_kSafecall; sym_kAssembler; sym_kNostackframe; sym_kInterrupt; sym_kNoreturn; sym_kIocheck;
   sym_kLocal; sym_kHardfloat; sym_kSoftfloat; sym_kMs_abi_default; sym_kMs_abi_cdecl;
   sym_kSaveregisters; sym_kSysv_abi_default; sym_kSysv_abi_cdecl; sym_kVectorcall; sym_kVarargs;
   sym_kWinapi]; ACTIONS 4503 [sym_kAlias]; ACTIONS 4478 [sym_kBegin; sym_kClass; sym_kConst;
   sym_kConstructor; sym_kDestructor; sym_kEnd; sym_kExports; sym_kFinalization; sym_kFunction;
   sym_kImplementation; sym_kInitialization]; ACTIONS 1016 [sym_kInline];
   ACTIONS 4478 [sym_kInterface; sym_kLabel; sym_kProcedure; sym_kResourcestring; sym_kThreadvar;
   sym_kType; sym_kUses; sym_kVar]].

(** State 1604. *)
Definition ts_parse_table_1604 : parse_row :=
  [STATE 2189 [sym__procAttribute]; STATE 14259 [sym_procAttribute];
   STATE 1613 [sym_procExternal; aux_sym_declVar_repeat2]; ACTIONS 12052 [anon_sym_LBRACK];
   ACTIONS 4506 [aux_sym_ppUsesBlock_token1]; ACTIONS 3 [sym__space];
   ACTIONS 5 [sym_ppDirective]; ACTIONS 3 [sym_comment]; ACTIONS 4506 [sym_identifier];
   ACTIONS 4513 [sym_kDefault; sym_kNodefault]; ACTIONS 4516 [sym_kDispId];
   ACTIONS 4506 [sym_kGeneric; sym_kOperator]; ACTIONS 4519 [sym_kPublic];
   ACTIONS 4513 [sym_kStatic; sym_kVirtual; sym_kAbstract; sym_kDynamic; sym_kOverride;
   sym_kOverload; sym_kReintroduce; sym_kStdcall; sym_kCdecl; sym_kCppdecl; sym_kPascal;
   sym_kRegister; sym_kMwpascal]; ACTIONS 11924 [sym_kExternal]; ACTIONS 4522 [sym_kMessage];
   ACTIONS 4525 [sym_kDeprecated]; ACTIONS 4513 [sym_kExperimental; sym_kPlatform;
   sym_kUnimplemented; sym_kCvar]; ACTIONS 4528 [sym_kExport]; ACTIONS 4513 [sym_kFar; sym_kNear;
   sym_kSafecall; sym_kAssembler; sym_kNostackframe; sym_kInterrupt; sym_kNoreturn; sym_kIocheck;
   sym_kLocal; sym_kHardfloat; sym_kSoftfloat; sym_kMs_abi_default; sym_kMs_abi_cdecl;
   sym_kSaveregisters; sym_kSysv_abi_default; sym_kSysv_abi_cdecl; sym_kVectorcall; sym_kVarargs;
   sym_kWinapi]; ACTIONS 4531 [sym_kAlias]; ACTIONS 4506 [sym_kBegin; sym_kClass; sym_kConst;
   sym_kConstructor; sym_kDestructor; sym_kEnd; sym_kExports; sym_kFinalization; sym_kFunction;
   sym_kImplementation; sym_kInitialization]; ACTIONS 1016 [sym_kInline];
   ACTIONS 4506 [sym_kInterface; sym_kLabel; sym_kProcedure; sym_kResourcestring; sym_kThreadvar;
   sym_kType; sym_kUses; sym_kVar]].

(** State 1605. *)
Definition ts_parse_table_1605 : parse_row :=
  [STATE 2189 [sym__procAttribute]; STATE 14259 [sym_procAttribute];
   STATE 1616 [sym_procExternal; aux_sym_declVar_repeat2]; ACTIONS 12055 [anon_sym_LBRACK];
   ACTIONS 4534 [aux_sym_ppUsesBlock_token1]; ACTIONS 3 [sym__space];
   ACTIONS 5 [sym_ppDirective]; ACTIONS 3 [sym_comment]; ACTIONS 4534 [sym_identifier];
   ACTIONS 4541 [sym_kDefault; sym_kNodefault]; ACTIONS 4544 [sym_kDispId];
   ACTIONS 4534 [sym_kGeneric; sym_kOperator]; ACTIONS 4547 [sym_kPublic];
   ACTIONS 4541 [sym_kStatic; sym_kVirtual; sym_kAbstract; sym_kDynamic; sym_kOverride;
   sym_kOverload; sym_kReintroduce; sym_kStdcall; sym_kCdecl; sym_kCppdecl; sym_kPascal;
   sym_kRegister; sym_kMwpascal]; ACTIONS 11924 [sym_kExternal]; ACTIONS 4550 [sym_kMessage];
   ACTIONS 4553 [sym_kDeprecated]; ACTIONS 4541 [sym_kExperimental; sym_kPlatform;
   sym_kUnimplemented; sym_kCvar]; ACTIONS 4556 [sym_kExport]; ACTIONS 4541 [sym_kFar; sym_kNear;
   sym_kSafecall; sym_kAssembler; sym_kNostackframe; sym_kInterrupt; sym_kNoreturn; sym_kIocheck;
   sym_kLocal; sym_kHardfloat; sym_kSoftfloat; sym_kMs_abi_default; sym_kMs_abi_cdecl;
   sym_kSaveregisters; sym_kSysv_abi_default; sym_kSysv_abi_cdecl; sym_kVectorcall; sym_kVarargs;
   sym_kWinapi]; ACTIONS 4559 [sym_kAlias]; ACTIONS 4534 [sym_kBegin; sym_kClass; sym_kConst;
   sym_kConstructor; sym_kDestructor; sym_kEnd; sym_kExports; sym_kFinalization; sym_kFunction;
   sym_kImplementation; sym_kInitialization]; ACTIONS 1016 [sym_kInline];
   ACTIONS 4534 [sym_kInterface; sym_kLabel; sym_kProcedure; sym_kResourcestring; sym_kThreadvar;
   sym_kType; sym_kUses; sym_kVar]].

(** State 1606. *)
Definition ts_parse_table_1606 : parse_row :=
  [STATE 2189 [sym__procAttribute]; STATE 14259 [sym_procAttribute];
   STATE 1621 [sym_procExternal; aux_sym_declVar_repeat2]; ACTIONS 12058 [anon_sym_LBRACK];
   ACTIONS 4593 [aux_sym_ppUsesBlock_token1]; ACTIONS 3 [sym__space];
   ACTIONS 5 [sym_ppDirective]; ACTIONS 3 [sym_comment]; ACTIONS 4593 [sym_identifier];
   ACTIONS 4600 [sym_kDefault; sym_kNodefault]; ACTIONS 4603 [sym_kDispId];
   ACTIONS 4593 [sym_kGeneric; sym_kOperator]; ACTIONS 4606 [sym_kPublic];
   ACTIONS 4600 [sym_kStatic; sym_kVirtual; sym_kAbstract; sym_kDynamic; sym_kOverride;
   sym_kOverload; sym_kReintroduce; sym_kStdcall; sym_kCdecl; sym_kCppdecl; sym_kPascal;
   sym_kRegister; sym_kMwpascal]; ACTIONS 11924 [sym_kExternal]; ACTIONS 4609 [sym_kMessage];
   ACTIONS 4612 [sym_kDeprecated]; ACTIONS 4600 [sym_kExperimental; sym_kPlatform;
   sym_kUnimplemented; sym_kCvar]; ACTIONS 4615 [sym_kExport]; ACTIONS 4600 [sym_kFar; sym_kNear;
   sym_kSafecall; sym_kAssembler; sym_kNostackframe; sym_kInterrupt; sym_kNoreturn; sym_kIocheck;
   sym_kLocal; sym_kHardfloat; sym_kSoftfloat; sym_kMs_abi_default; sym_kMs_abi_cdecl;
   sym_kSaveregisters; sym_kSysv_abi_default; sym_kSysv_abi_cdecl; sym_kVectorcall; sym_kVarargs;
   sym_kWinapi]; ACTIONS 4618 [sym_kAlias]; ACTIONS 4593 [sym_kBegin; sym_kClass; sym_kConst;
   sym_kConstructor; sym_kDestructor; sym_kEnd; sym_kExports; sym_kFinalization; sym_kFunction;
   sym_kImplementation; sym_kInitialization]; ACTIONS 1016 [sym_kInline];
   ACTIONS 4593 [sym_kInterface; sym_kLabel; sym_kProcedure; sym_kResourcestring; sym_kThreadvar;
   sym_kType; sym_kUses; sym_kVar]].

(** State 1607. *)
Definition ts_parse_table_1607 : parse_row :=
  [STATE 2189 [sym__procAttribute]; STATE 14259 [sym_procAttribute];
   STATE 1623 [sym_procExternal; aux_sym_declVar_repeat2]; ACTIONS 12061 [anon_sym_LBRACK];
   ACTIONS 4761 [aux_sym_ppUsesBlock_token1]; ACTIONS 3 [sym__space];
   ACTIONS 5 [sym_ppDirective]; ACTIONS 3 [sym_comment]; ACTIONS 4761 [sym_identifier];
   ACTIONS 4768 [sym_kDefault; sym_kNodefault]; ACTIONS 4771 [sym_kDispId];
   ACTIONS 4761 [sym_kGeneric; sym_kOperator]; ACTIONS 4774 [sym_kPublic];
   ACTIONS 4768 [sym_kStatic; sym_kVirtual; sym_kAbstract; sym_kDynamic; sym_kOverride;
   sym_kOverload; sym_kReintroduce; sym_kStdcall; sym_kCdecl; sym_kCppdecl; sym_kPascal;
   sym_kRegister; sym_kMwpascal]; ACTIONS 11924 [sym_kExternal]; ACTIONS 4777 [sym_kMessage];
   ACTIONS 4780 [sym_kDeprecated]; ACTIONS 4768 [sym_kExperimental; sym_kPlatform;
   sym_kUnimplemented; sym_kCvar]; ACTIONS 4783 [sym_kExport]; ACTIONS 4768 [sym_kFar; sym_kNear;
   sym_kSafecall; sym_kAssembler; sym_kNostackframe; sym_kInterrupt; sym_kNoreturn; sym_kIocheck;
   sym_kLocal; sym_kHardfloat; sym_kSoftfloat; sym_kMs_abi_default; sym_kMs_abi_cdecl;
   sym_kSaveregisters; sym_kSysv_abi_default; sym_kSysv_abi_cdecl; sym_kVectorcall; sym_kVarargs;
   sym_kWinapi]; ACTIONS 4786 [sym_kAlias]; ACTIONS 4761 [sym_kBegin; sym_kClass; sym_kConst;
   sym_kConstructor; sym_kDestructor; sym_kEnd; sym_kExports; sym_kFinalization; sym_kFunction;
   sym_kImplementation; sym_kInitialization]; ACTIONS 1016 [sym_kInline];
   ACTIONS 4761 [sym_kInterface; sym_kLabel; sym_kProcedure; sym_kResourcestring; sym_kThreadvar;
   sym_kType; sym_kUses; sym_kVar]].

(** State 1608. *)
Definition ts_parse_table_1608 : parse_row :=
  [STATE 2189 [sym__procAttribute]; STATE 14259 [sym_procAttribute];
   STATE 1625 [sym_procExternal; aux_sym_declVar_repeat2]; ACTIONS 12064 [anon_sym_LBRACK];
   ACTIONS 6525 [aux_sym_ppUsesBlock_token1]; ACTIONS 3 [sym__space];
   ACTIONS 5 [sym_ppDirective]; ACTIONS 3 [sym_comment]; ACTIONS 6525 [sym_identifier];
   ACTIONS 6532 [sym_kDefault; sym_kNodefault]; ACTIONS 6535 [sym_kDispId];
   ACTIONS 6525 [sym_kGeneric; sym_kOperator]; ACTIONS 6538 [sym_kPublic];
   ACTIONS 6532 [sym_kStatic; sym_kVirtual; sym_kAbstract; sym_kDynamic; sym_kOverride;
   sym_kOverload; sym_kReintroduce; sym_kStdcall; sym_kCdecl; sym_kCppdecl; sym_kPascal;
   sym_kRegister; sym_kMwpascal]; ACTIONS 11924 [sym_kExternal]; ACTIONS 6541 [sym_kMessage];
   ACTIONS 6544 [sym_kDeprecated]; ACTIONS 6532 [sym_kExperimental; sym_kPlatform;
   sym_kUnimplemented; sym_kCvar]; ACTIONS 6547 [sym_kExport]; ACTIONS 6532 [sym_kFar; sym_kNear;
   sym_kSafecall; sym_kAssembler; sym_kNostackframe; sym_kInterrupt; sym_kNoreturn; sym_kIocheck;
   sym_kLocal; sym_kHardfloat; sym_kSoftfloat; sym_kMs_abi_default; sym_kMs_abi_cdecl;
   sym_kSaveregisters; sym_kSysv_abi_default; sym_kSysv_abi_cdecl; sym_kVectorcall; sym_kVarargs;
   sym_kWinapi]; ACTIONS 6550 [sym_kAlias]; ACTIONS 6525 [sym_kBegin; sym_kClass; sym_kConst;
   sym_kConstructor; sym_kDestructor; sym_kEnd; sym_kExports; sym_kFinalization; sym_kFunction;
   sym_kImplementation; sym_kInitialization]; ACTIONS 1016 [sym_kInline];
   ACTIONS 6525 [sym_kInterface; sym_kLabel; sym_kProcedure; sym_kResourcestring; sym_kThreadvar;
   sym_kType; sym_kUses; sym_kVar]].

(** State 1609. *)
Definition ts_parse_table_1609 : parse_row :=
  [STATE 2189 [sym__procAttribute]; STATE 14259 [sym_procAttribute];
   STATE 1609 [sym_procExternal; aux_sym_declVar_repeat2]; ACTIONS 12067 [anon_sym_LBRACK];
   ACTIONS 6584 [aux_sym_ppUsesBlock_token1]; ACTIONS 3 [sym__space];
   ACTIONS 5 [sym_ppDirective]; ACTIONS 3 [sym_comment]; ACTIONS 6584 [sym_identifier];
   ACTIONS 6591 [sym_kDefault; sym_kNodefault]; ACTIONS 6594 [sym_kDispId];
   ACTIONS 6584 [sym_kGeneric; sym_kOperator]; ACTIONS 6597 [sym_kPublic];
   ACTIONS 6591 [sym_kStatic; sym_kVirtual; sym_kAbstract; sym_kDynamic; sym_kOverride;
   sym_kOverload; sym_kReintroduce; sym_kStdcall; sym_kCdecl; sym_kCppdecl; sym_kPascal;
   sym_kRegister; sym_kMwpascal]; ACTIONS 12070 [sym_kExternal]; ACTIONS 6603 [sym_kMessage];
   ACTIONS 6606 [sym_kDeprecated]; ACTIONS 6591 [sym_kExperimental; sym_kPlatform;
   sym_kUnimplemented; sym_kCvar]; ACTIONS 6609 [sym_kExport]; ACTIONS 6591 [sym_kFar; sym_kNear;
   sym_kSafecall; sym_kAssembler; sym_kNostackframe; sym_kInterrupt; sym_kNoreturn; sym_kIocheck;
   sym_kLocal; sym_kHardfloat; sym_kSoftfloat; sym_kMs_abi_default; sym_kMs_abi_cdecl;
   sym_kSaveregisters; sym_kSysv_abi_default; sym_kSysv_abi_cdecl; sym_kVectorcall; sym_kVarargs;
   sym_kWinapi]; ACTIONS 6612 [sym_kAlias]; ACTIONS 6584 [sym_kBegin; sym_kClass; sym_kConst;
   sym_kConstructor; sym_kDestructor; sym_kEnd; sym_kExports; sym_kFinalization; sym_kFunction;
   sym_kImplementation; sym_kInitialization]; ACTIONS 6591 [sym_kInline];
   ACTIONS 6584 [sym_kInterface; sym_kLabel; sym_kProcedure; sym_kResourcestring; sym_kThreadvar;
   sym_kType; sym_kUses; sym_kVar]].

(** State 1610. *)
Definition ts_parse_table_1610 : parse_row :=
  [STATE 2189 [sym__procAttribute]; STATE 14259 [sym_procAttribute];
   STATE 1609 [sym_procExternal; aux_sym_declVar_repeat2]; ACTIONS 12073 [anon_sym_LBRACK];
   ACTIONS 6618 [aux_sym_ppUsesBlock_token1]; ACTIONS 3 [sym__space];
   ACTIONS 5 [sym_ppDirective]; ACTIONS 3 [sym_comment]; ACTIONS 6618 [sym_identifier];
   ACTIONS 6625 [sym_kDefault; sym_kNodefault]; ACTIONS 6628 [sym_kDispId];
   ACTIONS 6618 [sym_kGeneric; sym_kOperator]; ACTIONS 6631 [sym_kPublic];
   ACTIONS 6625 [sym_kStatic; sym_kVirtual; sym_kAbstract; sym_kDynamic; sym_kOverride;
   sym_kOverload; sym_kReintroduce; sym_kStdcall; sym_kCdecl; sym_kCppdecl; sym_kPascal;
   sym_kRegister; sym_kMwpascal]; ACTIONS 11924 [sym_kExternal]; ACTIONS 6634 [sym_kMessage];
   ACTIONS 6637 [sym_kDeprecated]; ACTIONS 6625 [sym_kExperimental; sym_kPlatform;
   sym_kUnimplemented; sym_kCvar]; ACTIONS 6640 [sym_kExport]; ACTIONS 6625 [sym_kFar; sym_kNear;
   sym_kSafecall; sym_kAssembler; sym_kNostackframe; sym_kInterrupt; sym_kNoreturn; sym_kIocheck;
   sym_kLocal; sym_kHardfloat; sym_kSoftfloat; sym_kMs_abi_default; sym_kMs_abi_cdecl;
   sym_kSaveregisters; sym_kSysv_abi_default; sym_kSysv_abi_cdecl; sym_kVectorcall; sym_kVarargs;
   sym_kWinapi]; ACTIONS 6643 [sym_kAlias]; ACTIONS 6618 [sym_kBegin; sym_kClass; sym_kConst;
   sym_kConstructor; sym_kDestructor; sym_kEnd; sym_kExports; sym_kFinalization; sym_kFunction;
   sym_kImplementation; sym_kInitialization]; ACTIONS 1016 [sym_kInline];
   ACTIONS 6618 [sym_kInterface; sym_kLabel; sym_kProcedure; sym_kResourcestring; sym_kThreadvar;
   sym_kType; sym_kUses; sym_kVar]].

(** State 1611. *)
Definition ts_parse_table_1611 : parse_row :=
  [STATE 2189 [sym__procAttribute]; STATE 14259 [sym_procAttribute];
   STATE 1626 [sym_procExternal; aux_sym_declVar_repeat2]; ACTIONS 12076 [anon_sym_LBRACK];
   ACTIONS 6677 [aux_sym_ppUsesBlock_token1]; ACTIONS 3 [sym__space];
   ACTIONS 5 [sym_ppDirective]; ACTIONS 3 [sym_comment]; ACTIONS 6677 [sym_identifier];
   ACTIONS 6684 [sym_kDefault; sym_kNodefault]; ACTIONS 6687 [sym_kDispId];
   ACTIONS 6677 [sym_kGeneric; sym_kOperator]; ACTIONS 6690 [sym_kPublic];
   ACTIONS 6684 [sym_kStatic; sym_kVirtual; sym_kAbstract; sym_kDynamic; sym_kOverride;
   sym_kOverload; sym_kReintroduce; sym_kStdcall; sym_kCdecl; sym_kCppdecl; sym_kPascal;
   sym_kRegister; sym_kMwpascal]; ACTIONS 11924 [sym_kExternal]; ACTIONS 6693 [sym_kMessage];
   ACTIONS 6696 [sym_kDeprecated]; ACTIONS 6684 [sym_kExperimental; sym_kPlatform;
   sym_kUnimplemented; sym_kCvar]; ACTIONS 6699 [sym_kExport]; ACTIONS 6684 [sym_kFar; sym_kNear;
   sym_kSafecall; sym_kAssembler; sym_kNostackframe; sym_kInterrupt; sym_kNoreturn; sym_kIocheck;
   sym_kLocal; sym_kHardfloat; sym_kSoftfloat; sym_kMs_abi_default; sym_kMs_abi_cdecl;
   sym_kSaveregisters; sym_kSysv_abi_default; sym_kSysv_abi_cdecl; sym_kVectorcall; sym_kVarargs;
   sym_kWinapi]; ACTIONS 6702 [sym_kAlias]; ACTIONS 6677 [sym_kBegin; sym_kClass; sym_kConst;
   sym_kConstructor; sym_kDestructor; sym_kEnd; sym_kExports; sym_kFinalization; sym_kFunction;
   sym_kImplementation; sym_kInitialization]; ACTIONS 1016 [sym_kInline];
   ACTIONS 6677 [sym_kInterface; sym_kLabel; sym_kProcedure; sym_kResourcestring; sym_kThreadvar;
   sym_kType; sym_kUses; sym_kVar]].

(** State 1612. *)
Definition ts_parse_table_1612 : parse_row :=
  [STATE 2189 [sym__procAttribute]; STATE 14259 [sym_procAttribute];
   STATE 1609 [sym_procExternal; aux_sym_declVar_repeat2]; ACTIONS 12079 [anon_sym_LBRACK];
   ACTIONS 6736 [aux_sym_ppUsesBlock_token1]; ACTIONS 3 [sym__space];
   ACTIONS 5 [sym_ppDirective]; ACTIONS 3 [sym_comment]; ACTIONS 6736 [sym_identifier];
   ACTIONS 6743 [sym_kDefault; sym_kNodefault]; ACTIONS 6746 [sym_kDispId];
   ACTIONS 6736 [sym_kGeneric; sym_kOperator]; ACTIONS 6749 [sym_kPublic];
   ACTIONS 6743 [sym_kStatic; sym_kVirtual; sym_kAbstract; sym_kDynamic; sym_kOverride;
   sym_kOverload; sym_kReintroduce; sym_kStdcall; sym_kCdecl; sym_kCppdecl; sym_kPascal;
   sym_kRegister; sym_kMwpascal]; ACTIONS 11924 [sym_kExternal]; ACTIONS 6752 [sym_kMessage];
   ACTIONS 6755 [sym_kDeprecated]; ACTIONS 6743 [sym_kExperimental; sym_kPlatform;
   sym_kUnimplemented; sym_kCvar]; ACTIONS 6758 [sym_kExport]; ACTIONS 6743 [sym_kFar; sym_kNear;
   sym_kSafecall; sym_kAssembler; sym_kNostackframe; sym_kInterrupt; sym_kNoreturn; sym_kIocheck;
   sym_kLocal; sym_kHardfloat; sym_kSoftfloat; sym_kMs_abi_default; sym_kMs_abi_cdecl;
   sym_kSaveregisters; sym_kSysv_abi_default; sym_kSysv_abi_cdecl; sym_kVectorcall; sym_kVarargs;
   sym_kWinapi]; ACTIONS 6761 [sym_kAlias]; ACTIONS 6736 [sym_kBegin; sym_kClass; sym_kConst;
   sym_kConstructor; sym_kDestructor; sym_kEnd; sym_kExports; sym_kFinalization; sym_kFunction;
   sym_kImplementation; sym_kInitialization]; ACTIONS 1016 [sym_kInline];
   ACTIONS 6736 [sym_kInterface; sym_kLabel; sym_kProcedure; sym_kResourcestring; sym_kThreadvar;
   sym_kType; sym_kUses; sym_kVar]].

(** State 1613. *)
Definition ts_parse_table_1613 : parse_row :=
  [STATE 2189 [sym__procAttribute]; STATE 14259 [sym_procAttribute];
   STATE 1609 [sym_procExternal; aux_sym_declVar_repeat2]; ACTIONS 12082 [anon_sym_LBRACK];
   ACTIONS 6767 [aux_sym_ppUsesBlock_token1]; ACTIONS 3 [sym__space];
   ACTIONS 5 [sym_ppDirective]; ACTIONS 3 [sym_comment]; ACTIONS 6767 [sym_identifier];
   ACTIONS 6774 [sym_kDefault; sym_kNodefault]; ACTIONS 6777 [sym_kDispId];
   ACTIONS 6767 [sym_kGeneric; sym_kOperator]; ACTIONS 6780 [sym_kPublic];
   ACTIONS 6774 [sym_kStatic; sym_kVirtual; sym_kAbstract; sym_kDynamic; sym_kOverride;
   sym_kOverload; sym_kReintroduce; sym_kStdcall; sym_kCdecl; sym_kCppdecl; sym_kPascal;
   sym_kRegister; sym_kMwpascal]; ACTIONS 11924 [sym_kExternal]; ACTIONS 6783 [sym_kMessage];
   ACTIONS 6786 [sym_kDeprecated]; ACTIONS 6774 [sym_kExperimental; sym_kPlatform;
   sym_kUnimplemented; sym_kCvar]; ACTIONS 6789 [sym_kExport]; ACTIONS 6774 [sym_kFar; sym_kNear;
   sym_kSafecall; sym_kAssembler; sym_kNostackframe; sym_kInterrupt; sym_kNoreturn; sym_kIocheck;
   sym_kLocal; sym_kHardfloat; sym_kSoftfloat; sym_kMs_abi_default; sym_kMs_abi_cdecl;
   sym_kSaveregisters; sym_kSysv_abi_default; sym_kSysv_abi_cdecl; sym_kVectorcall; sym_kVarargs;
   sym_kWinapi]; ACTIONS 6792 [sym_kAlias]; ACTIONS 6767 [sym_kBegin; sym_kClass; sym_kConst;
   sym_kConstructor; sym_kDestructor; sym_kEnd; sym_kExports; sym_kFinalization; sym_kFunction;
   sym_kImplementation; sym_kInitialization]; ACTIONS 1016 [sym_kInline];
   ACTIONS 6767 [sym_kInterface; sym_kLabel; sym_kProcedure; sym_kResourcestring; sym_kThreadvar;
   sym_kType; sym_kUses; sym_kVar]].

(** State 1614. *)
Definition ts_parse_table_1614 : parse_row :=
  [STATE 2189 [sym__procAttribute]; STATE 14259 [sym_procAttribute];
   STATE 1628 [sym_procExternal; aux_sym_declVar_repeat2]; ACTIONS 12085 [anon_sym_LBRACK];
   ACTIONS 6823 [aux_sym_ppUsesBlock_token1]; ACTIONS 3 [sym__space];
   ACTIONS 5 [sym_ppDirective]; ACTIONS 3 [sym_comment]; ACTIONS 6823 [sym_identifier];
   ACTIONS 6830 [sym_kDefault; sym_kNodefault]; ACTIONS 6833 [sym_kDispId];
   ACTIONS 6823 [sym_kGeneric; sym_kOperator]; ACTIONS 6836 [sym_kPublic];
   ACTIONS 6830 [sym_kStatic; sym_kVirtual; sym_kAbstract; sym_kDynamic; sym_kOverride;
   sym_kOverload; sym_kReintroduce; sym_kStdcall; sym_kCdecl; sym_kCppdecl; sym_kPascal;
   sym_kRegister; sym_kMwpascal]; ACTIONS 11924 [sym_kExternal]; ACTIONS 6839 [sym_kMessage];
   ACTIONS 6842 [sym_kDeprecated]; ACTIONS 6830 [sym_kExperimental; sym_kPlatform;
   sym_kUnimplemented; sym_kCvar]; ACTIONS 6845 [sym_kExport]; ACTIONS 6830 [sym_kFar; sym_kNear;
   sym_kSafecall; sym_kAssembler; sym_kNostackframe; sym_kInterrupt; sym_kNoreturn; sym_kIocheck;
   sym_kLocal; sym_kHardfloat; sym_kSoftfloat; sym_kMs_abi_default; sym_kMs_abi_cdecl;
   sym_kSaveregisters; sym_kSysv_abi_default; sym_kSysv_abi_cdecl; sym_kVectorcall; sym_kVarargs;
   sym_kWinapi]; ACTIONS 6848 [sym_kAlias]; ACTIONS 6823 [sym_kBegin; sym_kClass; sym_kConst;
   sym_kConstructor; sym_kDestructor; sym_kEnd; sym_kExports; sym_kFinalization; sym_kFunction;
   sym_kImplementation; sym_kInitialization]; ACTIONS 1016 [sym_kInline];
   ACTIONS 6823 [sym_kInterface; sym_kLabel; sym_kProcedure; sym_kResourcestring; sym_kThreadvar;
   sym_kType; sym_kUses; sym_kVar]].

(** State 1615. *)
Definition ts_parse_table_1615 : parse_row :=
  [STATE 2251 [sym__procAttribute]; STATE 15882 [sym_procAttribute];
   STATE 1630 [sym_procExternal; aux_sym_declVar_repeat2]; ACTIONS 12088 [anon_sym_LBRACK];
   ACTIONS 4029 [aux_sym_ppUsesBlock_token1]; ACTIONS 3 [sym__space];
   ACTIONS 5 [sym_ppDirective]; ACTIONS 3 [sym_comment]; ACTIONS 4029 [sym_identifier];
   ACTIONS 4036 [sym_kDefault; sym_kNodefault]; ACTIONS 4039 [sym_kDispId];
   ACTIONS 4029 [sym_kGeneric; sym_kOperator; sym_kPublished]; ACTIONS 4042 [sym_kPublic];
   ACTIONS 4029 [sym_kProtected; sym_kPrivate; sym_kStrict; sym_kRequired; sym_kOptional];
   ACTIONS 4036 [sym_kStatic; sym_kVirtual; sym_kAbstract; sym_kDynamic; sym_kOverride;
   sym_kOverload; sym_kReintroduce; sym_kStdcall; sym_kCdecl; sym_kCppdecl; sym_kPascal;
   sym_kRegister; sym_kMwpascal]; ACTIONS 11857 [sym_kExternal]; ACTIONS 4045 [sym_kMessage];
   ACTIONS 4048 [sym_kDeprecated]; ACTIONS 4036 [sym_kExperimental; sym_kPlatform;
   sym_kUnimplemented; sym_kCvar]; ACTIONS 4051 [sym_kExport]; ACTIONS 4036 [sym_kFar; sym_kNear;
   sym_kSafecall; sym_kAssembler; sym_kNostackframe; sym_kInterrupt; sym_kNoreturn; sym_kIocheck;
   sym_kLocal; sym_kHardfloat; sym_kSoftfloat; sym_kMs_abi_default; sym_kMs_abi_cdecl;
   sym_kSaveregisters; sym_kSysv_abi_default; sym_kSysv_abi_cdecl; sym_kVectorcall; sym_kVarargs;
   sym_kWinapi]; ACTIONS 4054 [sym_kAlias]; ACTIONS 4029 [sym_kCase; sym_kClass; sym_kConst;
   sym_kConstructor; sym_kDestructor; sym_kEnd; sym_kFunction]; ACTIONS 1016 [sym_kInline];
   ACTIONS 4029 [sym_kProcedure; sym_kProperty; sym_kResourcestring; sym_kThreadvar; sym_kType;
   sym_kVar]].

(** State 1616. *)
Definition ts_parse_table_1616 : parse_row :=
  [STATE 2189 [sym__procAttribute]; STATE 14259 [sym_procAttribute];
   STATE 1609 [sym_procExternal; aux_sym_declVar_repeat2]; ACTIONS 12091 [anon_sym_LBRACK];
   ACTIONS 6854 [aux_sym_ppUsesBlock_token1]; ACTIONS 3 [sym__space];
   ACTIONS 5 [sym_ppDirective]; ACTIONS 3 [sym_comment]; ACTIONS 6854 [sym_identifier];
   ACTIONS 6861 [sym_kDefault; sym_kNodefault]; ACTIONS 6864 [sym_kDispId];
   ACTIONS 6854 [sym_kGeneric; sym_kOperator]; ACTIONS 6867 [sym_kPublic];
   ACTIONS 6861 [sym_kStatic; sym_kVirtual; sym_kAbstract; sym_kDynamic; sym_kOverride;
   sym_kOverload; sym_kReintroduce; sym_kStdcall; sym_kCdecl; sym_kCppdecl; sym_kPascal;
   sym_kRegister; sym_kMwpascal]; ACTIONS 11924 [sym_kExternal]; ACTIONS 6870 [sym_kMessage];
   ACTIONS 6873 [sym_kDeprecated]; ACTIONS 6861 [sym_kExperimental; sym_kPlatform;
   sym_kUnimplemented; sym_kCvar]; ACTIONS 6876 [sym_kExport]; ACTIONS 6861 [sym_kFar; sym_kNear;
   sym_kSafecall; sym_kAssembler; sym_kNostackframe; sym_kInterrupt; sym_kNoreturn; sym_kIocheck;
   sym_kLocal; sym_kHardfloat; sym_kSoftfloat; sym_kMs_abi_default; sym_kMs_abi_cdecl;
   sym_kSaveregisters; sym_kSysv_abi_default; sym_kSysv_abi_cdecl; sym_kVectorcall; sym_kVarargs;
   sym_kWinapi]; ACTIONS 6879 [sym_kAlias]; ACTIONS 6854 [sym_kBegin; sym_kClass; sym_kConst;
   sym_kConstructor; sym_kDestructor; sym_kEnd; sym_kExports; sym_kFinalization; sym_kFunction;
   sym_kImplementation; sym_kInitialization]; ACTIONS 1016 [sym_kInline];
   ACTIONS 6854 [sym_kInterface; sym_kLabel; sym_kProcedure; sym_kResourcestring; sym_kThreadvar;
   sym_kType; sym_kUses; sym_kVar]].

(** State 1617. *)
Definition ts_parse_table_1617 : parse_row :=
  [STATE 2251 [sym__procAttribute]; STATE 15882 [sym_procAttribute];
   STATE 1636 [sym_procExternal; aux_sym_declVar_repeat2]; ACTIONS 12094 [anon_sym_LBRACK];
   ACTIONS 4085 [aux_sym_ppUsesBlock_token1]; ACTIONS 3 [sym__space];
   ACTIONS 5 [sym_ppDirective]; ACTIONS 3 [sym_comment]; ACTIONS 4085 [sym_identifier];
   ACTIONS 4092 [sym_kDefault; sym_kNodefault]; ACTIONS 4095 [sym_kDispId];
   ACTIONS 4085 [sym_kGeneric; sym_kOperator; sym_kPublished]; ACTIONS 4098 [sym_kPublic];
   ACTIONS 4085 [sym_kProtected; sym_kPrivate; sym_kStrict; sym_kRequired; sym_kOptional];
   ACTIONS 4092 [sym_kStatic; sym_kVirtual; sym_kAbstract; sym_kDynamic; sym_kOverride;
   sym_kOverload; sym_kReintroduce; sym_kStdcall; sym_kCdecl; sym_kCppdecl; sym_kPascal;
   sym_kRegister; sym_kMwpascal]; ACTIONS 11857 [sym_kExternal]; ACTIONS 4101 [sym_kMessage];
   ACTIONS 4104 [sym_kDeprecated]; ACTIONS 4092 [sym_kExperimental; sym_kPlatform;
   sym_kUnimplemented; sym_kCvar]; ACTIONS 4107 [sym_kExport]; ACTIONS 4092 [sym_kFar; sym_kNear;
   sym_kSafecall; sym_kAssembler; sym_kNostackframe; sym_kInterrupt; sym_kNoreturn; sym_kIocheck;
   sym_kLocal; sym_kHardfloat; sym_kSoftfloat; sym_kMs_abi_default; sym_kMs_abi_cdecl;
   sym_kSaveregisters; sym_kSysv_abi_default; sym_kSysv_abi_cdecl; sym_kVectorcall; sym_kVarargs;
   sym_kWinapi]; ACTIONS 4110 [sym_kAlias]; ACTIONS 4085 [sym_kCase; sym_kClass; sym_kConst;
   sym_kConstructor; sym_kDestructor; sym_kEnd; sym_kFunction]; ACTIONS 1016 [sym_kInline];
   ACTIONS 4085 [sym_kProcedure; sym_kProperty; sym_kResourcestring; sym_kThreadvar; sym_kType;
   sym_kVar]].

(** State 1618. *)
Definition ts_parse_table_1618 : parse_row :=
  [STATE 2189 [sym__procAttribute]; STATE 14259 [sym_procAttribute];
   STATE 1631 [sym_procExternal; aux_sym_declVar_repeat2]; ACTIONS 12097 [anon_sym_LBRACK];
   ACTIONS 6913 [aux_sym_ppUsesBlock_token1]; ACTIONS 3 [sym__space];
   ACTIONS 5 [sym_ppDirective]; ACTIONS 3 [sym_comment]; ACTIONS 6913 [sym_identifier];
   ACTIONS 6920 [sym_kDefault; sym_kNodefault]; ACTIONS 6923 [sym_kDispId];
   ACTIONS 6913 [sym_kGeneric; sym_kOperator]; ACTIONS 6926 [sym_kPublic];
   ACTIONS 6920 [sym_kStatic; sym_kVirtual; sym_kAbstract; sym_kDynamic; sym_kOverride;
   sym_kOverload; sym_kReintroduce; sym_kStdcall; sym_kCdecl; sym_kCppdecl; sym_kPascal;
   sym_kRegister; sym_kMwpascal]; ACTIONS 11924 [sym_kExternal]; ACTIONS 6929 [sym_kMessage];
   ACTIONS 6932 [sym_kDeprecated]; ACTIONS 6920 [sym_kExperimental; sym_kPlatform;
   sym_kUnimplemented; sym_kCvar]; ACTIONS 6935 [sym_kExport]; ACTIONS 6920 [sym_kFar; sym_kNear;
   sym_kSafecall; sym_kAssembler; sym_kNostackframe; sym_kInterrupt; sym_kNoreturn; sym_kIocheck;
   sym_kLocal; sym_kHardfloat; sym_kSoftfloat; sym_kMs_abi_default; sym_kMs_abi_cdecl;
   sym_kSaveregisters; sym_kSysv_abi_default; sym_kSysv_abi_cdecl; sym_kVectorcall; sym_kVarargs;
   sym_kWinapi]; ACTIONS 6938 [sym_kAlias]; ACTIONS 6913 [sym_kBegin; sym_kClass; sym_kConst;
   sym_kConstructor; sym_kDestructor; sym_kEnd; sym_kExports; sym_kFinalization; sym_kFunction;
   sym_kImplementation; sym_kInitialization]; ACTIONS 1016 [sym_kInline];
   ACTIONS 6913 [sym_kInterface; sym_kLabel; sym_kProcedure; sym_kResourcestring; sym_kThreadvar;
   sym_kType; sym_kUses; sym_kVar]].

(** State 1619. *)
Definition ts_parse_table_1619 : parse_row :=
  [STATE 2189 [sym__procAttribute]; STATE 14259 [sym_procAttribute];
   STATE 1632 [sym_procExternal; aux_sym_declVar_repeat2]; ACTIONS 12100 [anon_sym_LBRACK];
   ACTIONS 6944 [aux_sym_ppUsesBlock_token1]; ACTIONS 3 [sym__space];
   ACTIONS 5 [sym_ppDirective]; ACTIONS 3 [sym_comment]; ACTIONS 6944 [sym_identifier];
   ACTIONS 6951 [sym_kDefault; sym_kNodefault]; ACTIONS 6954 [sym_kDispId];
   ACTIONS 6944 [sym_kGeneric; sym_kOperator]; ACTIONS 6957 [sym_kPublic];
   ACTIONS 6951 [sym_kStatic; sym_kVirtual; sym_kAbstract; sym_kDynamic; sym_kOverride;
   sym_kOverload; sym_kReintroduce; sym_kStdcall; sym_kCdecl; sym_kCppdecl; sym_kPascal;
   sym_kRegister; sym_kMwpascal]; ACTIONS 11924 [sym_kExternal]; ACTIONS 6960 [sym_kMessage];
   ACTIONS 6963 [sym_kDeprecated]; ACTIONS 6951 [sym_kExperimental; sym_kPlatform;
   sym_kUnimplemented; sym_kCvar]; ACTIONS 6966 [sym_kExport]; ACTIONS 6951 [sym_kFar; sym_kNear;
   sym_kSafecall; sym_kAssembler; sym_kNostackframe; sym_kInterrupt; sym_kNoreturn; sym_kIocheck;
   sym_kLocal; sym_kHardfloat; sym_kSoftfloat; sym_kMs_abi_default; sym_kMs_abi_cdecl;
   sym_kSaveregisters; sym_kSysv_abi_default; sym_kSysv_abi_cdecl; sym_kVectorcall; sym_kVarargs;
   sym_kWinapi]; ACTIONS 6969 [sym_kAlias]; ACTIONS 6944 [sym_kBegin; sym_kClass; sym_kConst;
   sym_kConstructor; sym_kDestructor; sym_kEnd; sym_kExports; sym_kFinalization; sym_kFunction;
   sym_kImplementation; sym_kInitialization]; ACTIONS 1016 [sym_kInline];
   ACTIONS 6944 [sym_kInterface; sym_kLabel; sym_kProcedure; sym_kResourcestring; sym_kThreadvar;
   sym_kType; sym_kUses; sym_kVar]].

(** State 1620. *)
Definition ts_parse_table_1620 : parse_row :=
  [STATE 2265 [sym__procAttribute]; STATE 14480 [sym_procAttribute];
   STATE 1683 [sym_procExternal; aux_sym_declVar_repeat2]; ACTIONS 12103 [anon_sym_LBRACK];
   ACTIONS 6618 [aux_sym_ppUsesBlock_token1]; ACTIONS 3 [sym__space];
   ACTIONS 5 [sym_ppDirective]; ACTIONS 3 [sym_comment]; ACTIONS 6618 [sym_identifier];
   ACTIONS 6625 [sym_kDefault; sym_kNodefault]; ACTIONS 6628 [sym_kDispId];
   ACTIONS 6618 [sym_kGeneric; sym_kOperator]; ACTIONS 6631 [sym_kPublic];
   ACTIONS 6625 [sym_kStatic; sym_kVirtual; sym_kAbstract; sym_kDynamic; sym_kOverride;
   sym_kOverload; sym_kReintroduce; sym_kStdcall; sym_kCdecl; sym_kCppdecl; sym_kPascal;
   sym_kRegister; sym_kMwpascal]; ACTIONS 11862 [sym_kExternal]; ACTIONS 6634 [sym_kMessage];
   ACTIONS 6637 [sym_kDeprecated]; ACTIONS 6625 [sym_kExperimental; sym_kPlatform;
   sym_kUnimplemented; sym_kCvar]; ACTIONS 6640 [sym_kExport]; ACTIONS 6625 [sym_kFar; sym_kNear;
   sym_kSafecall; sym_kAssembler; sym_kNostackframe; sym_kInterrupt; sym_kNoreturn; sym_kIocheck;
   sym_kLocal; sym_kHardfloat; sym_kSoftfloat; sym_kMs_abi_default; sym_kMs_abi_cdecl;
   sym_kSaveregisters; sym_kSysv_abi_default; sym_kSysv_abi_cdecl; sym_kVectorcall; sym_kVarargs;
   sym_kWinapi]; ACTIONS 6643 [sym_kAlias]; ACTIONS 6618 [sym_kClass; sym_kConst;
   sym_kConstructor; sym_kDestructor; sym_kEnd; sym_kExports; sym_kFinalization; sym_kFunction;
   sym_kImplementation; sym_kInitialization]; ACTIONS 1016 [sym_kInline];
   ACTIONS 6618 [sym_kInterface; sym_kLabel; sym_kProcedure; sym_kProperty; sym_kResourcestring;
   sym_kThreadvar; sym_kType; sym_kUses; sym_kVar]].

(** State 1621. *)
Definition ts_parse_table_1621 : parse_row :=
  [STATE 2189 [sym__procAttribute]; STATE 14259 [sym_procAttribute];
   STATE 1609 [sym_procExternal; aux_sym_declVar_repeat2]; ACTIONS 12106 [anon_sym_LBRACK];
   ACTIONS 7031 [aux_sym_ppUsesBlock_token1]; ACTIONS 3 [sym__space];
   ACTIONS 5 [sym_ppDirective]; ACTIONS 3 [sym_comment]; ACTIONS 7031 [sym_identifier];
   ACTIONS 7038 [sym_kDefault; sym_kNodefault]; ACTIONS 7041 [sym_kDispId];
   ACTIONS 7031 [sym_kGeneric; sym_kOperator]; ACTIONS 7044 [sym_kPublic];
   ACTIONS 7038 [sym_kStatic; sym_kVirtual; sym_kAbstract; sym_kDynamic; sym_kOverride;
   sym_kOverload; sym_kReintroduce; sym_kStdcall; sym_kCdecl; sym_kCppdecl; sym_kPascal;
   sym_kRegister; sym_kMwpascal]; ACTIONS 11924 [sym_kExternal]; ACTIONS 7047 [sym_kMessage];
   ACTIONS 7050 [sym_kDeprecated]; ACTIONS 7038 [sym_kExperimental; sym_kPlatform;
   sym_kUnimplemented; sym_kCvar]; ACTIONS 7053 [sym_kExport]; ACTIONS 7038 [sym_kFar; sym_kNear;
   sym_kSafecall; sym_kAssembler; sym_kNostackframe; sym_kInterrupt; sym_kNoreturn; sym_kIocheck;
   sym_kLocal; sym_kHardfloat; sym_kSoftfloat; sym_kMs_abi_default; sym_kMs_abi_cdecl;
   sym_kSaveregisters; sym_kSysv_abi_default; sym_kSysv_abi_cdecl; sym_kVectorcall; sym_kVarargs;
   sym_kWinapi]; ACTIONS 7056 [sym_kAlias]; ACTIONS 7031 [sym_kBegin; sym_kClass; sym_kConst;
   sym_kConstructor; sym_kDestructor; sym_kEnd; sym_kExports; sym_kFinalization; sym_kFunction;
   sym_kImplementation; sym_kInitialization]; ACTIONS 1016 [sym_kInline];
   ACTIONS 7031 [sym_kInterface; sym_kLabel; sym_kProcedure; sym_kResourcestring; sym_kThreadvar;
   sym_kType; sym_kUses; sym_kVar]].

(** State 1622. *)
Definition ts_parse_table_1622 : parse_row :=
  [STATE 2189 [sym__procAttribute]; STATE 14259 [sym_procAttribute];
   STATE 1644 [sym_procExternal; aux_sym_declVar_repeat2]; ACTIONS 12109 [anon_sym_LBRACK];
   ACTIONS 7090 [aux_sym_ppUsesBlock_token1]; ACTIONS 3 [sym__space];
   ACTIONS 5 [sym_ppDirective]; ACTIONS 3 [sym_comment]; ACTIONS 7090 [sym_identifier];
   ACTIONS 7097 [sym_kDefault; sym_kNodefault]; ACTIONS 7100 [sym_kDispId];
   ACTIONS 7090 [sym_kGeneric; sym_kOperator]; ACTIONS 7103 [sym_kPublic];
   ACTIONS 7097 [sym_kStatic; sym_kVirtual; sym_kAbstract; sym_kDynamic; sym_kOverride;
   sym_kOverload; sym_kReintroduce; sym_kStdcall; sym_kCdecl; sym_kCppdecl; sym_kPascal;
   sym_kRegister; sym_kMwpascal]; ACTIONS 11924 [sym_kExternal]; ACTIONS 7106 [sym_kMessage];
   ACTIONS 7109 [sym_kDeprecated]; ACTIONS 7097 [sym_kExperimental; sym_kPlatform;
   sym_kUnimplemented; sym_kCvar]; ACTIONS 7112 [sym_kExport]; ACTIONS 7097 [sym_kFar; sym_kNear;
   sym_kSafecall; sym_kAssembler; sym_kNostackframe; sym_kInterrupt; sym_kNoreturn; sym_kIocheck;
   sym_kLocal; sym_kHardfloat; sym_kSoftfloat; sym_kMs_abi_default; sym_kMs_abi_cdecl;
   sym_kSaveregisters; sym_kSysv_abi_default; sym_kSysv_abi_cdecl; sym_kVectorcall; sym_kVarargs;
   sym_kWinapi]; ACTIONS 7115 [sym_kAlias]; ACTIONS 7090 [sym_kBegin; sym_kClass; sym_kConst;
   sym_kConstructor; sym_kDestructor; sym_kEnd; sym_kExports; sym_kFinalization; sym_kFunction;
   sym_kImplementation; sym_kInitialization]; ACTIONS 1016 [sym_kInline];
   ACTIONS 7090 [sym_kInterface; sym_kLabel; sym_kProcedure; sym_kResourcestring; sym_kThreadvar;
   sym_kType; sym_kUses; sym_kVar]].

(** State 1623. *)
Definition ts_parse_table_1623 : parse_row :=
  [STATE 2189 [sym__procAttribute]; STATE 14259 [sym_procAttribute];
   STATE 1609 [sym_procExternal; aux_sym_declVar_repeat2]; ACTIONS 12112 [anon_sym_LBRACK];
   ACTIONS 7118 [aux_sym_ppUsesBlock_token1]; ACTIONS 3 [sym__space];
   ACTIONS 5 [sym_ppDirective]; ACTIONS 3 [sym_comment]; ACTIONS 7118 [sym_identifier];
   ACTIONS 7125 [sym_kDefault; sym_kNodefault]; ACTIONS 7128 [sym_kDispId];
   ACTIONS 7118 [sym_kGeneric; sym_kOperator]; ACTIONS 7131 [sym_kPublic];
   ACTIONS 7125 [sym_kStatic; sym_kVirtual; sym_kAbstract; sym_kDynamic; sym_kOverride;
   sym_kOverload; sym_kReintroduce; sym_kStdcall; sym_kCdecl; sym_kCppdecl; sym_kPascal;
   sym_kRegister; sym_kMwpascal]; ACTIONS 11924 [sym_kExternal]; ACTIONS 7134 [sym_kMessage];
   ACTIONS 7137 [sym_kDeprecated]; ACTIONS 7125 [sym_kExperimental; sym_kPlatform;
   sym_kUnimplemented; sym_kCvar]; ACTIONS 7140 [sym_kExport]; ACTIONS 7125 [sym_kFar; sym_kNear;
   sym_kSafecall; sym_kAssembler; sym_kNostackframe; sym_kInterrupt; sym_kNoreturn; sym_kIocheck;
   sym_kLocal; sym_kHardfloat; sym_kSoftfloat; sym_kMs_abi_default; sym_kMs_abi_cdecl;
   sym_kSaveregisters; sym_kSysv_abi_default; sym_kSysv_abi_cdecl; sym_kVectorcall; sym_kVarargs;
   sym_kWinapi]; ACTIONS 7143 [sym_kAlias]; ACTIONS 7118 [sym_kBegin; sym_kClass; sym_kConst;
   sym_kConstructor; sym_kDestructor; sym_kEnd; sym_kExports; sym_kFinalization; sym_kFunction;
   sym_kImplementation; sym_kInitialization]; ACTIONS 1016 [sym_kInline];
   ACTIONS 7118 [sym_kInterface; sym_kLabel; sym_kProcedure; sym_kResourcestring; sym_kThreadvar;
   sym_kType; sym_kUses; sym_kVar]].

(** State 1624. *)
Definition ts_parse_table_1624 : parse_row :=
  [STATE 2189 [sym__procAttribute]; STATE 14259 [sym_procAttribute];
   STATE 1646 [sym_procExternal; aux_sym_declVar_repeat2]; ACTIONS 12115 [anon_sym_LBRACK];
   ACTIONS 7177 [aux_sym_ppUsesBlock_token1]; ACTIONS 3 [sym__space];
   ACTIONS 5 [sym_ppDirective]; ACTIONS 3 [sym_comment]; ACTIONS 7177 [sym_identifier];
   ACTIONS 7184 [sym_kDefault; sym_kNodefault]; ACTIONS 7187 [sym_kDispId];
   ACTIONS 7177 [sym_kGeneric; sym_kOperator]; ACTIONS 7190 [sym_kPublic];
   ACTIONS 7184 [sym_kStatic; sym_kVirtual; sym_kAbstract; sym_kDynamic; sym_kOverride;
   sym_kOverload; sym_kReintroduce; sym_kStdcall; sym_kCdecl; sym_kCppdecl; sym_kPascal;
   sym_kRegister; sym_kMwpascal]; ACTIONS 11924 [sym_kExternal]; ACTIONS 7193 [sym_kMessage];
   ACTIONS 7196 [sym_kDeprecated]; ACTIONS 7184 [sym_kExperimental; sym_kPlatform;
   sym_kUnimplemented; sym_kCvar]; ACTIONS 7199 [sym_kExport]; ACTIONS 7184 [sym_kFar; sym_kNear;
   sym_kSafecall; sym_kAssembler; sym_kNostackframe; sym_kInterrupt; sym_kNoreturn; sym_kIocheck;
   sym_kLocal; sym_kHardfloat; sym_kSoftfloat; sym_kMs_abi_default; sym_kMs_abi_cdecl;
   sym_kSaveregisters; sym_kSysv_abi_default; sym_kSysv_abi_cdecl; sym_kVectorcall; sym_kVarargs;
   sym_kWinapi]; ACTIONS 7202 [sym_kAlias]; ACTIONS 7177 [sym_kBegin; sym_kClass; sym_kConst;
   sym_kConstructor; sym_kDestructor; sym_kEnd; sym_kExports; sym_kFinalization; sym_kFunction;
   sym_kImplementation; sym_kInitialization]; ACTIONS 1016 [sym_kInline];
   ACTIONS 7177 [sym_kInterface; sym_kLabel; sym_kProcedure; sym_kResourcestring; sym_kThreadvar;
   sym_kType; sym_kUses; sym_kVar]].

(** State 1625. *)
Definition ts_parse_table_1625 : parse_row :=
  [STATE 2189 [sym__procAttribute]; STATE 14259 [sym_procAttribute];
   STATE 1609 [sym_procExternal; aux_sym_declVar_repeat2]; ACTIONS 12118 [anon_sym_LBRACK];
   ACTIONS 3883 [aux_sym_ppUsesBlock_token1]; ACTIONS 3 [sym__space];
   ACTIONS 5 [sym_ppDirective]; ACTIONS 3 [sym_comment]; ACTIONS 3883 [sym_identifier];
   ACTIONS 3890 [sym_kDefault; sym_kNodefault]; ACTIONS 3893 [sym_kDispId];
   ACTIONS 3883 [sym_kGeneric; sym_kOperator]; ACTIONS 3896 [sym_kPublic];
   ACTIONS 3890 [sym_kStatic; sym_kVirtual; sym_kAbstract; sym_kDynamic; sym_kOverride;
   sym_kOverload; sym_kReintroduce; sym_kStdcall; sym_kCdecl; sym_kCppdecl; sym_kPascal;
   sym_kRegister; sym_kMwpascal]; ACTIONS 11924 [sym_kExternal]; ACTIONS 3899 [sym_kMessage];
   ACTIONS 3902 [sym_kDeprecated]; ACTIONS 3890 [sym_kExperimental; sym_kPlatform;
   sym_kUnimplemented; sym_kCvar]; ACTIONS 3905 [sym_kExport]; ACTIONS 3890 [sym_kFar; sym_kNear;
   sym_kSafecall; sym_kAssembler; sym_kNostackframe; sym_kInterrupt; sym_kNoreturn; sym_kIocheck;
   sym_kLocal; sym_kHardfloat; sym_kSoftfloat; sym_kMs_abi_default; sym_kMs_abi_cdecl;
   sym_kSaveregisters; sym_kSysv_abi_default; sym_kSysv_abi_cdecl; sym_kVectorcall; sym_kVarargs;
   sym_kWinapi]; ACTIONS 3908 [sym_kAlias]; ACTIONS 3883 [sym_kBegin; sym_kClass; sym_kConst;
   sym_kConstructor; sym_kDestructor; sym_kEnd; sym_kExports; sym_kFinalization; sym_kFunction;
   sym_kImplementation; sym_kInitialization]; ACTIONS 1016 [sym_kInline];
   ACTIONS 3883 [sym_kInterface; sym_kLabel; sym_kProcedure; sym_kResourcestring; sym_kThreadvar;
   sym_kType; sym_kUses; sym_kVar]].

(** State 1626. *)
Definition ts_parse_table_1626 : parse_row :=
  [STATE 2189 [sym__procAttribute]; STATE 14259 [sym_procAttribute];
   STATE 1609 [sym_procExternal; aux_sym_declVar_repeat2]; ACTIONS 12121 [anon_sym_LBRACK];
   ACTIONS 3942 [aux_sym_ppUsesBlock_token1]; ACTIONS 3 [sym__space];
   ACTIONS 5 [sym_ppDirective]; ACTIONS 3 [sym_comment]; ACTIONS 3942 [sym_identifier];
   ACTIONS 3949 [sym_kDefault; sym_kNodefault]; ACTIONS 3952 [sym_kDispId];
   ACTIONS 3942 [sym_kGeneric; sym_kOperator]; ACTIONS 3955 [sym_kPublic];
   ACTIONS 3949 [sym_kStatic; sym_kVirtual; sym_kAbstract; sym_kDynamic; sym_kOverride;
   sym_kOverload; sym_kReintroduce; sym_kStdcall; sym_kCdecl; sym_kCppdecl; sym_kPascal;
   sym_kRegister; sym_kMwpascal]; ACTIONS 11924 [sym_kExternal]; ACTIONS 3958 [sym_kMessage];
   ACTIONS 3961 [sym_kDeprecated]; ACTIONS 3949 [sym_kExperimental; sym_kPlatform;
   sym_kUnimplemented; sym_kCvar]; ACTIONS 3964 [sym_kExport]; ACTIONS 3949 [sym_kFar; sym_kNear;
   sym_kSafecall; sym_kAssembler; sym_kNostackframe; sym_kInterrupt; sym_kNoreturn; sym_kIocheck;
   sym_kLocal; sym_kHardfloat; sym_kSoftfloat; sym_kMs_abi_default; sym_kMs_abi_cdecl;
   sym_kSaveregisters; sym_kSysv_abi_default; sym_kSysv_abi_cdecl; sym_kVectorcall; sym_kVarargs;
   sym_kWinapi]; ACTIONS 3967 [sym_kAlias]; ACTIONS 3942 [sym_kBegin; sym_kClass; sym_kConst;
   sym_kConstructor; sym_kDestructor; sym_kEnd; sym_kExports; sym_kFinalization; sym_kFunction;
   sym_kImplementation; sym_kInitialization]; ACTIONS 1016 [sym_kInline];
   ACTIONS 3942 [sym_kInterface; sym_kLabel; sym_kProcedure; sym_kResourcestring; sym_kThreadvar;
   sym_kType; sym_kUses; sym_kVar]].

(** State 1627. *)
Definition ts_parse_table_1627 : parse_row :=
  [STATE 2189 [sym__procAttribute]; STATE 14259 [sym_procAttribute];
   STATE 1648 [sym_procExternal; aux_sym_declVar_repeat2]; ACTIONS 12124 [anon_sym_LBRACK];
   ACTIONS 3970 [aux_sym_ppUsesBlock_token1]; ACTIONS 3 [sym__space];
   ACTIONS 5 [sym_ppDirective]; ACTIONS 3 [sym_comment]; ACTIONS 3970 [sym_identifier];
   ACTIONS 3977 [sym_kDefault; sym_kNodefault]; ACTIONS 3980 [sym_kDispId];
   ACTIONS 3970 [sym_kGeneric; sym_kOperator]; ACTIONS 3983 [sym_kPublic];
   ACTIONS 3977 [sym_kStatic; sym_kVirtual; sym_kAbstract; sym_kDynamic; sym_kOverride;
   sym_kOverload; sym_kReintroduce; sym_kStdcall; sym_kCdecl; sym_kCppdecl; sym_kPascal;
   sym_kRegister; sym_kMwpascal]; ACTIONS 11924 [sym_kExternal]; ACTIONS 3986 [sym_kMessage];
   ACTIONS 3989 [sym_kDeprecated]; ACTIONS 3977 [sym_kExperimental; sym_kPlatform;
   sym_kUnimplemented; sym_kCvar]; ACTIONS 3992 [sym_kExport]; ACTIONS 3977 [sym_kFar; sym_kNear;
   sym_kSafecall; sym_kAssembler; sym_kNostackframe; sym_kInterrupt; sym_kNoreturn; sym_kIocheck;
   sym_kLocal; sym_kHardfloat; sym_kSoftfloat; sym_kMs_abi_default; sym_kMs_abi_cdecl;
   sym_kSaveregisters; sym_kSysv_abi_default; sym_kSysv_abi_cdecl; sym_kVectorcall; sym_kVarargs;
   sym_kWinapi]; ACTIONS 3995 [sym_kAlias]; ACTIONS 3970 [sym_kBegin; sym_kClass; sym_kConst;
   sym_kConstructor; sym_kDestructor; sym_kEnd; sym_kExports; sym_kFinalization; sym_kFunction;
   sym_kImplementation; sym_kInitialization]; ACTIONS 1016 [sym_kInline];
   ACTIONS 3970 [sym_kInterface; sym_kLabel; sym_kProcedure; sym_kResourcestring; sym_kThreadvar;
   sym_kType; sym_kUses; sym_kVar]].

(** State 1628. *)
Definition ts_parse_table_1628 : parse_row :=
  [STATE 2189 [sym__procAttribute]; STATE 14259 [sym_procAttribute];
   STATE 1609 [sym_procExternal; aux_sym_declVar_repeat2]; ACTIONS 12127 [anon_sym_LBRACK];
   ACTIONS 4057 [aux_sym_ppUsesBlock_token1]; ACTIONS 3 [sym__space];
   ACTIONS 5 [sym_ppDirective]; ACTIONS 3 [sym_comment]; ACTIONS 4057 [sym_identifier];
   ACTIONS 4064 [sym_kDefault; sym_kNodefault]; ACTIONS 4067 [sym_kDispId];
   ACTIONS 4057 [sym_kGeneric; sym_kOperator]; ACTIONS 4070 [sym_kPublic];
   ACTIONS 4064 [sym_kStatic; sym_kVirtual; sym_kAbstract; sym_kDynamic; sym_kOverride;
   sym_kOverload; sym_kReintroduce; sym_kStdcall; sym_kCdecl; sym_kCppdecl; sym_kPascal;
   sym_kRegister; sym_kMwpascal]; ACTIONS 11924 [sym_kExternal]; ACTIONS 4073 [sym_kMessage];
   ACTIONS 4076 [sym_kDeprecated]; ACTIONS 4064 [sym_kExperimental; sym_kPlatform;
   sym_kUnimplemented; sym_kCvar]; ACTIONS 4079 [sym_kExport]; ACTIONS 4064 [sym_kFar; sym_kNear;
   sym_kSafecall; sym_kAssembler; sym_kNostackframe; sym_kInterrupt; sym_kNoreturn; sym_kIocheck;
   sym_kLocal; sym_kHardfloat; sym_kSoftfloat; sym_kMs_abi_default; sym_kMs_abi_cdecl;
   sym_kSaveregisters; sym_kSysv_abi_default; sym_kSysv_abi_cdecl; sym_kVectorcall; sym_kVarargs;
   sym_kWinapi]; ACTIONS 4082 [sym_kAlias]; ACTIONS 4057 [sym_kBegin; sym_kClass; sym_kConst;
   sym_kConstructor; sym_kDestructor; sym_kEnd; sym_kExports; sym_kFinalization; sym_kFunction;
   sym_kImplementation; sym_kInitialization]; ACTIONS 1016 [sym_kInline];
   ACTIONS 4057 [sym_kInterface; sym_kLabel; sym_kProcedure; sym_kResourcestring; sym_kThreadvar;
   sym_kType; sym_kUses; sym_kVar]].

(** State 1629. *)
Definition ts_parse_table_1629 : parse_row :=
  [STATE 2189 [sym__procAttribute]; STATE 14259 [sym_procAttribute];
   STATE 1651 [sym_procExternal; aux_sym_declVar_repeat2]; ACTIONS 12130 [anon_sym_LBRACK];
   ACTIONS 4178 [aux_sym_ppUsesBlock_token1]; ACTIONS 3 [sym__space];
   ACTIONS 5 [sym_ppDirective]; ACTIONS 3 [sym_comment]; ACTIONS 4178 [sym_identifier];
   ACTIONS 4185 [sym_kDefault; sym_kNodefault]; ACTIONS 4188 [sym_kDispId];
   ACTIONS 4178 [sym_kGeneric; sym_kOperator]; ACTIONS 4191 [sym_kPublic];
   ACTIONS 4185 [sym_kStatic; sym_kVirtual; sym_kAbstract; sym_kDynamic; sym_kOverride;
   sym_kOverload; sym_kReintroduce; sym_kStdcall; sym_kCdecl; sym_kCppdecl; sym_kPascal;
   sym_kRegister; sym_kMwpascal]; ACTIONS 11924 [sym_kExternal]; ACTIONS 4194 [sym_kMessage];
   ACTIONS 4197 [sym_kDeprecated]; ACTIONS 4185 [sym_kExperimental; sym_kPlatform;
   sym_kUnimplemented; sym_kCvar]; ACTIONS 4200 [sym_kExport]; ACTIONS 4185 [sym_kFar; sym_kNear;
   sym_kSafecall; sym_kAssembler; sym_kNostackframe; sym_kInterrupt; sym_kNoreturn; sym_kIocheck;
   sym_kLocal; sym_kHardfloat; sym_kSoftfloat; sym_kMs_abi_default; sym_kMs_abi_cdecl;
   sym_kSaveregisters; sym_kSysv_abi_default; sym_kSysv_abi_cdecl; sym_kVectorcall; sym_kVarargs;
   sym_kWinapi]; ACTIONS 4203 [sym_kAlias]; ACTIONS 4178 [sym_kBegin; sym_kClass; sym_kConst;
   sym_kConstructor; sym_kDestructor; sym_kEnd; sym_kExports; sym_kFinalization; sym_kFunction;
   sym_kImplementation; sym_kInitialization]; ACTIONS 1016 [sym_kInline];
   ACTIONS 4178 [sym_kInterface; sym_kLabel; sym_kProcedure; sym_kResourcestring; sym_kThreadvar;
   sym_kType; sym_kUses; sym_kVar]].

(** State 1630. *)
Definition ts_parse_table_1630 : parse_row :=
  [STATE 2251 [sym__procAttribute]; STATE 15882 [sym_procAttribute];
   STATE 1649 [sym_procExternal; aux_sym_declVar_repeat2]; ACTIONS 12133 [anon_sym_LBRACK];
   ACTIONS 6795 [aux_sym_ppUsesBlock_token1]; ACTIONS 3 [sym__space];
   ACTIONS 5 [sym_ppDirective]; ACTIONS 3 [sym_comment]; ACTIONS 6795 [sym_identifier];
   ACTIONS 6802 [sym_kDefault; sym_kNodefault]; ACTIONS 6805 [sym_kDispId];
   ACTIONS 6795 [sym_kGeneric; sym_kOperator; sym_kPublished]; ACTIONS 6808 [sym_kPublic];
   ACTIONS 6795 [sym_kProtected; sym_kPrivate; sym_kStrict; sym_kRequired; sym_kOptional];
   ACTIONS 6802 [sym_kStatic; sym_kVirtual; sym_kAbstract; sym_kDynamic; sym_kOverride;
   sym_kOverload; sym_kReintroduce; sym_kStdcall; sym_kCdecl; sym_kCppdecl; sym_kPascal;
   sym_kRegister; sym_kMwpascal]; ACTIONS 11857 [sym_kExternal]; ACTIONS 6811 [sym_kMessage];
   ACTIONS 6814 [sym_kDeprecated]; ACTIONS 6802 [sym_kExperimental; sym_kPlatform;
   sym_kUnimplemented; sym_kCvar]; ACTIONS 6817 [sym_kExport]; ACTIONS 6802 [sym_kFar; sym_kNear;
   sym_kSafecall; sym_kAssembler; sym_kNostackframe; sym_kInterrupt; sym_kNoreturn; sym_kIocheck;
   sym_kLocal; sym_kHardfloat; sym_kSoftfloat; sym_kMs_abi_default; sym_kMs_abi_cdecl;
   sym_kSaveregisters; sym_kSysv_abi_default; sym_kSysv_abi_cdecl; sym_kVectorcall; sym_kVarargs;
   sym_kWinapi]; ACTIONS 6820 [sym_kAlias]; ACTIONS 6795 [sym_kCase; sym_kClass; sym_kConst;
   sym_kConstructor; sym_kDestructor; sym_kEnd; sym_kFunction]; ACTIONS 1016 [sym_kInline];
   ACTIONS 6795 [sym_kProcedure; sym_kProperty; sym_kResourcestring; sym_kThreadvar; sym_kType;
   sym_kVar]].

(** State 1631. *)
Definition ts_parse_table_1631 : parse_row :=
  [STATE 2189 [sym__procAttribute]; STATE 14259 [sym_procAttribute];
   STATE 1609 [sym_procExternal; aux_sym_declVar_repeat2]; ACTIONS 12136 [anon_sym_LBRACK];
   ACTIONS 4237 [aux_sym_ppUsesBlock_token1]; ACTIONS 3 [sym__space];
   ACTIONS 5 [sym_ppDirective]; ACTIONS 3 [sym_comment]; ACTIONS 4237 [sym_identifier];
   ACTIONS 4244 [sym_kDefault; sym_kNodefault]; ACTIONS 4247 [sym_kDispId];
   ACTIONS 4237 [sym_kGeneric; sym_kOperator]; ACTIONS 4250 [sym_kPublic];
   ACTIONS 4244 [sym_kStatic; sym_kVirtual; sym_kAbstract; sym_kDynamic; sym_kOverride;
   sym_kOverload; sym_kReintroduce; sym_kStdcall; sym_kCdecl; sym_kCppdecl; sym_kPascal;
   sym_kRegister; sym_kMwpascal]; ACTIONS 11924 [sym_kExternal]; ACTIONS 4253 [sym_kMessage];
   ACTIONS 4256 [sym_kDeprecated]; ACTIONS 4244 [sym_kExperimental; sym_kPlatform;
   sym_kUnimplemented; sym_kCvar]; ACTIONS 4259 [sym_kExport]; ACTIONS 4244 [sym_kFar; sym_kNear;
   sym_kSafecall; sym_kAssembler; sym_kNostackframe; sym_kInterrupt; sym_kNoreturn; sym_kIocheck;
   sym_kLocal; sym_kHardfloat; sym_kSoftfloat; sym_kMs_abi_default; sym_kMs_abi_cdecl;
   sym_kSaveregisters; sym_kSysv_abi_default; sym_kSysv_abi_cdecl; sym_kVectorcall; sym_kVarargs;
   sym_kWinapi]; ACTIONS 4262 [sym_kAlias]; ACTIONS 4237 [sym_kBegin; sym_kClass; sym_kConst;
   sym_kConstructor; sym_kDestructor; sym_kEnd; sym_kExports; sym_kFinalization; sym_kFunction;
   sym_kImplementation; sym_kInitialization]; ACTIONS 1016 [sym_kInline];
   ACTIONS 4237 [sym_kInterface; sym_kLabel; sym_kProcedure; sym_kResourcestring; sym_kThreadvar;
   sym_kType; sym_kUses; sym_kVar]].

(** State 1632. *)
Definition ts_parse_table_1632 : parse_row :=
  [STATE 2189 [sym__procAttribute]; STATE 14259 [sym_procAttribute];
   STATE 1609 [sym_procExternal; aux_sym_declVar_repeat2]; ACTIONS 12139 [anon_sym_LBRACK];
   ACTIONS 4447 [aux_sym_ppUsesBlock_token1]; ACTIONS 3 [sym__space];
   ACTIONS 5 [sym_ppDirective]; ACTIONS 3 [sym_comment]; ACTIONS 4447 [sym_identifier];
   ACTIONS 4454 [sym_kDefault; sym_kNodefault]; ACTIONS 4457 [sym_kDispId];
   ACTIONS 4447 [sym_kGeneric; sym_kOperator]; ACTIONS 4460 [sym_kPublic];
   ACTIONS 4454 [sym_kStatic; sym_kVirtual; sym_kAbstract; sym_kDynamic; sym_kOverride;
   sym_kOverload; sym_kReintroduce; sym_kStdcall; sym_kCdecl; sym_kCppdecl; sym_kPascal;
   sym_kRegister; sym_kMwpascal]; ACTIONS 11924 [sym_kExternal]; ACTIONS 4463 [sym_kMessage];
   ACTIONS 4466 [sym_kDeprecated]; ACTIONS 4454 [sym_kExperimental; sym_kPlatform;
   sym_kUnimplemented; sym_kCvar]; ACTIONS 4469 [sym_kExport]; ACTIONS 4454 [sym_kFar; sym_kNear;
   sym_kSafecall; sym_kAssembler; sym_kNostackframe; sym_kInterrupt; sym_kNoreturn; sym_kIocheck;
   sym_kLocal; sym_kHardfloat; sym_kSoftfloat; sym_kMs_abi_default; sym_kMs_abi_cdecl;
   sym_kSaveregisters; sym_kSysv_abi_default; sym_kSysv_abi_cdecl; sym_kVectorcall; sym_kVarargs;
   sym_kWinapi]; ACTIONS 4472 [sym_kAlias]; ACTIONS 4447 [sym_kBegin; sym_kClass; sym_kConst;
   sym_kConstructor; sym_kDestructor; sym_kEnd; sym_kExports; sym_kFinalization; sym_kFunction;
   sym_kImplementation; sym_kInitialization]; ACTIONS 1016 [sym_kInline];
   ACTIONS 4447 [sym_kInterface; sym_kLabel; sym_kProcedure; sym_kResourcestring; sym_kThreadvar;
   sym_kType; sym_kUses; sym_kVar]].

(** State 1633. *)
Definition ts_parse_table_1633 : parse_row :=
  [STATE 2189 [sym__procAttribute]; STATE 14259 [sym_procAttribute];
   STATE 1653 [sym_procExternal; aux_sym_declVar_repeat2]; ACTIONS 12142 [anon_sym_LBRACK];
   ACTIONS 4879 [aux_sym_ppUsesBlock_token1]; ACTIONS 3 [sym__space];
   ACTIONS 5 [sym_ppDirective]; ACTIONS 3 [sym_comment]; ACTIONS 4879 [sym_identifier];
   ACTIONS 4886 [sym_kDefault; sym_kNodefault]; ACTIONS 4889 [sym_kDispId];
   ACTIONS 4879 [sym_kGeneric; sym_kOperator]; ACTIONS 4892 [sym_kPublic];
   ACTIONS 4886 [sym_kStatic; sym_kVirtual; sym_kAbstract; sym_kDynamic; sym_kOverride;
   sym_kOverload; sym_kReintroduce; sym_kStdcall; sym_kCdecl; sym_kCppdecl; sym_kPascal;
   sym_kRegister; sym_kMwpascal]; ACTIONS 11924 [sym_kExternal]; ACTIONS 4895 [sym_kMessage];
   ACTIONS 4898 [sym_kDeprecated]; ACTIONS 4886 [sym_kExperimental; sym_kPlatform;
   sym_kUnimplemented; sym_kCvar]; ACTIONS 4901 [sym_kExport]; ACTIONS 4886 [sym_kFar; sym_kNear;
   sym_kSafecall; sym_kAssembler; sym_kNostackframe; sym_kInterrupt; sym_kNoreturn; sym_kIocheck;
   sym_kLocal; sym_kHardfloat; sym_kSoftfloat; sym_kMs_abi_default; sym_kMs_abi_cdecl;
   sym_kSaveregisters; sym_kSysv_abi_default; sym_kSysv_abi_cdecl; sym_kVectorcall; sym_kVarargs;
   sym_kWinapi]; ACTIONS 4904 [sym_kAlias]; ACTIONS 4879 [sym_kBegin; sym_kClass; sym_kConst;
   sym_kConstructor; sym_kDestructor; sym_kEnd; sym_kExports; sym_kFinalization; sym_kFunction;
   sym_kImplementation; sym_kInitialization]; ACTIONS 1016 [sym_kInline];
   ACTIONS 4879 [sym_kInterface; sym_kLabel; sym_kProcedure; sym_kResourcestring; sym_kThreadvar;
   sym_kType; sym_kUses; sym_kVar]].

(** State 1634. *)
Definition ts_parse_table_1634 : parse_row :=
  [STATE 2189 [sym__procAttribute]; STATE 14259 [sym_procAttribute];
   STATE 1609 [sym_procExternal; aux_sym_declVar_repeat2]; ACTIONS 12145 [anon_sym_LBRACK];
   ACTIONS 4969 [aux_sym_ppUsesBlock_token1]; ACTIONS 3 [sym__space];
   ACTIONS 5 [sym_ppDirective]; ACTIONS 3 [sym_comment]; ACTIONS 4969 [sym_identifier];
   ACTIONS 4976 [sym_kDefault; sym_kNodefault]; ACTIONS 4979 [sym_kDispId];
   ACTIONS 4969 [sym_kGeneric; sym_kOperator]; ACTIONS 4982 [sym_kPublic];
   ACTIONS 4976 [sym_kStatic; sym_kVirtual; sym_kAbstract; sym_kDynamic; sym_kOverride;
   sym_kOverload; sym_kReintroduce; sym_kStdcall; sym_kCdecl; sym_kCppdecl; sym_kPascal;
   sym_kRegister; sym_kMwpascal]; ACTIONS 11924 [sym_kExternal]; ACTIONS 4985 [sym_kMessage];
   ACTIONS 4988 [sym_kDeprecated]; ACTIONS 4976 [sym_kExperimental; sym_kPlatform;
   sym_kUnimplemented; sym_kCvar]; ACTIONS 4991 [sym_kExport]; ACTIONS 4976 [sym_kFar; sym_kNear;
   sym_kSafecall; sym_kAssembler; sym_kNostackframe; sym_kInterrupt; sym_kNoreturn; sym_kIocheck;
   sym_kLocal; sym_kHardfloat; sym_kSoftfloat; sym_kMs_abi_default; sym_kMs_abi_cdecl;
   sym_kSaveregisters; sym_kSysv_abi_default; sym_kSysv_abi_cdecl; sym_kVectorcall; sym_kVarargs;
   sym_kWinapi]; ACTIONS 4994 [sym_kAlias]; ACTIONS 4969 [sym_kBegin; sym_kClass; sym_kConst;
   sym_kConstructor; sym_kDestructor; sym_kEnd; sym_kExports; sym_kFinalization; sym_kFunction;
   sym_kImplementation; sym_kInitialization]; ACTIONS 1016 [sym_kInline];
   ACTIONS 4969 [sym_kInterface; sym_kLabel; sym_kProcedure; sym_kResourcestring; sym_kThreadvar;
   sym_kType; sym_kUses; sym_kVar]].

(** State 1635. *)
Definition ts_parse_table_1635 : parse_row :=
  [STATE 2251 [sym__procAttribute]; STATE 15882 [sym_procAttribute];
   STATE 1650 [sym_procExternal; aux_sym_declVar_repeat2]; ACTIONS 12148 [anon_sym_LBRACK];
   ACTIONS 3755 [aux_sym_ppUsesBlock_token1]; ACTIONS 3 [sym__space];
   ACTIONS 5 [sym_ppDirective]; ACTIONS 3 [sym_comment]; ACTIONS 3755 [sym_identifier];
   ACTIONS 3762 [sym_kDefault; sym_kNodefault]; ACTIONS 3765 [sym_kDispId];
   ACTIONS 3755 [sym_kGeneric; sym_kOperator; sym_kPublished]; ACTIONS 3768 [sym_kPublic];
   ACTIONS 3755 [sym_kProtected; sym_kPrivate; sym_kStrict; sym_kRequired; sym_kOptional];
   ACTIONS 3762 [sym_kStatic; sym_kVirtual; sym_kAbstract; sym_kDynamic; sym_kOverride;
   sym_kOverload; sym_kReintroduce; sym_kStdcall; sym_kCdecl; sym_kCppdecl; sym_kPascal;
   sym_kRegister; sym_kMwpascal]; ACTIONS 11857 [sym_kExternal]; ACTIONS 3771 [sym_kMessage];
   ACTIONS 3774 [sym_kDeprecated]; ACTIONS 3762 [sym_kExperimental; sym_kPlatform;
   sym_kUnimplemented; sym_kCvar]; ACTIONS 3777 [sym_kExport]; ACTIONS 3762 [sym_kFar; sym_kNear;
   sym_kSafecall; sym_kAssembler; sym_kNostackframe; sym_kInterrupt; sym_kNoreturn; sym_kIocheck;
   sym_kLocal; sym_kHardfloat; sym_kSoftfloat; sym_kMs_abi_default; sym_kMs_abi_cdecl;
   sym_kSaveregisters; sym_kSysv_abi_default; sym_kSysv_abi_cdecl; sym_kVectorcall; sym_kVarargs;
   sym_kWinapi]; ACTIONS 3780 [sym_kAlias]; ACTIONS 3755 [sym_kCase; sym_kClass; sym_kConst;
   sym_kConstructor; sym_kDestructor; sym_kEnd; sym_kFunction]; ACTIONS 1016 [sym_kInline];
   ACTIONS 3755 [sym_kProcedure; sym_kProperty; sym_kResourcestring; sym_kThreadvar; sym_kType;
   sym_kVar]].

(** State 1636. *)
Definition ts_parse_table_1636 : parse_row :=
  [STATE 2251 [sym__procAttribute]; STATE 15882 [sym_procAttribute];
   STATE 1649 [sym_procExternal; aux_sym_declVar_repeat2]; ACTIONS 12151 [anon_sym_LBRACK];
   ACTIONS 3727 [aux_sym_ppUsesBlock_token1]; ACTIONS 3 [sym__space];
   ACTIONS 5 [sym_ppDirective]; ACTIONS 3 [sym_comment]; ACTIONS 3727 [sym_identifier];
   ACTIONS 3734 [sym_kDefault; sym_kNodefault]; ACTIONS 3737 [sym_kDispId];
   ACTIONS 3727 [sym_kGeneric; sym_kOperator; sym_kPublished]; ACTIONS 3740 [sym_kPublic];
   ACTIONS 3727 [sym_kProtected; sym_kPrivate; sym_kStrict; sym_kRequired; sym_kOptional];
   ACTIONS 3734 [sym_kStatic; sym_kVirtual; sym_kAbstract; sym_kDynamic; sym_kOverride;
   sym_kOverload; sym_kReintroduce; sym_kStdcall; sym_kCdecl; sym_kCppdecl; sym_kPascal;
   sym_kRegister; sym_kMwpascal]; ACTIONS 11857 [sym_kExternal]; ACTIONS 3743 [sym_kMessage];
   ACTIONS 3746 [sym_kDeprecated]; ACTIONS 3734 [sym_kExperimental; sym_kPlatform;
   sym_kUnimplemented; sym_kCvar]; ACTIONS 3749 [sym_kExport]; ACTIONS 3734 [sym_kFar; sym_kNear;
   sym_kSafecall; sym_kAssembler; sym_kNostackframe; sym_kInterrupt; sym_kNoreturn; sym_kIocheck;
   sym_kLocal; sym_kHardfloat; sym_kSoftfloat; sym_kMs_abi_default; sym_kMs_abi_cdecl;
   sym_kSaveregisters; sym_kSysv_abi_default; sym_kSysv_abi_cdecl; sym_kVectorcall; sym_kVarargs;
   sym_kWinapi]; ACTIONS 3752 [sym_kAlias]; ACTIONS 3727 [sym_kCase; sym_kClass; sym_kConst;
   sym_kConstructor; sym_kDestructor; sym_kEnd; sym_kFunction]; ACTIONS 1016 [sym_kInline];
   ACTIONS 3727 [sym_kProcedure; sym_kProperty; sym_kResourcestring; sym_kThreadvar; sym_kType;
   sym_kVar]].

(** State 1637. *)
Definition ts_parse_table_1637 : parse_row :=
  [STATE 2251 [sym__procAttribute]; STATE 15882 [sym_procAttribute];
   STATE 1658 [sym_procExternal; aux_sym_declVar_repeat2]; ACTIONS 12154 [anon_sym_LBRACK];
   ACTIONS 4478 [aux_sym_ppUsesBlock_token1]; ACTIONS 3 [sym__space];
   ACTIONS 5 [sym_ppDirective]; ACTIONS 3 [sym_comment]; ACTIONS 4478 [sym_identifier];
   ACTIONS 4485 [sym_kDefault; sym_kNodefault]; ACTIONS 4488 [sym_kDispId];
   ACTIONS 4478 [sym_kGeneric; sym_kOperator; sym_kPublished]; ACTIONS 4491 [sym_kPublic];
   ACTIONS 4478 [sym_kProtected; sym_kPrivate; sym_kStrict; sym_kRequired; sym_kOptional];
   ACTIONS 4485 [sym_kStatic; sym_kVirtual; sym_kAbstract; sym_kDynamic; sym_kOverride;
   sym_kOverload; sym_kReintroduce; sym_kStdcall; sym_kCdecl; sym_kCppdecl; sym_kPascal;
   sym_kRegister; sym_kMwpascal]; ACTIONS 11857 [sym_kExternal]; ACTIONS 4494 [sym_kMessage];
   ACTIONS 4497 [sym_kDeprecated]; ACTIONS 4485 [sym_kExperimental; sym_kPlatform;
   sym_kUnimplemented; sym_kCvar]; ACTIONS 4500 [sym_kExport]; ACTIONS 4485 [sym_kFar; sym_kNear;
   sym_kSafecall; sym_kAssembler; sym_kNostackframe; sym_kInterrupt; sym_kNoreturn; sym_kIocheck;
   sym_kLocal; sym_kHardfloat; sym_kSoftfloat; sym_kMs_abi_default; sym_kMs_abi_cdecl;
   sym_kSaveregisters; sym_kSysv_abi_default; sym_kSysv_abi_cdecl; sym_kVectorcall; sym_kVarargs;
   sym_kWinapi]; ACTIONS 4503 [sym_kAlias]; ACTIONS 4478 [sym_kCase; sym_kClass; sym_kConst;
   sym_kConstructor; sym_kDestructor; sym_kEnd; sym_kFunction]; ACTIONS 1016 [sym_kInline];
   ACTIONS 4478 [sym_kProcedure; sym_kProperty; sym_kResourcestring; sym_kThreadvar; sym_kType;
   sym_kVar]].

(** State 1638. *)
Definition ts_parse_table_1638 : parse_row :=
  [STATE 2251 [sym__procAttribute]; STATE 15882 [sym_procAttribute];
   STATE 1660 [sym_procExternal; aux_sym_declVar_repeat2]; ACTIONS 12157 [anon_sym_LBRACK];
   ACTIONS 4506 [aux_sym_ppUsesBlock_token1]; ACTIONS 3 [sym__space];
   ACTIONS 5 [sym_ppDirective]; ACTIONS 3 [sym_comment]; ACTIONS 4506 [sym_identifier];
   ACTIONS 4513 [sym_kDefault; sym_kNodefault]; ACTIONS 4516 [sym_kDispId];
   ACTIONS 4506 [sym_kGeneric; sym_kOperator; sym_kPublished]; ACTIONS 4519 [sym_kPublic];
   ACTIONS 4506 [sym_kProtected; sym_kPrivate; sym_kStrict; sym_kRequired; sym_kOptional];
   ACTIONS 4513 [sym_kStatic; sym_kVirtual; sym_kAbstract; sym_kDynamic; sym_kOverride;
   sym_kOverload; sym_kReintroduce; sym_kStdcall; sym_kCdecl; sym_kCppdecl; sym_kPascal;
   sym_kRegister; sym_kMwpascal]; ACTIONS 11857 [sym_kExternal]; ACTIONS 4522 [sym_kMessage];
   ACTIONS 4525 [sym_kDeprecated]; ACTIONS 4513 [sym_kExperimental; sym_kPlatform;
   sym_kUnimplemented; sym_kCvar]; ACTIONS 4528 [sym_kExport]; ACTIONS 4513 [sym_kFar; sym_kNear;
   sym_kSafecall; sym_kAssembler; sym_kNostackframe; sym_kInterrupt; sym_kNoreturn; sym_kIocheck;
   sym_kLocal; sym_kHardfloat; sym_kSoftfloat; sym_kMs_abi_default; sym_kMs_abi_cdecl;
   sym_kSaveregisters; sym_kSysv_abi_default; sym_kSysv_abi_cdecl; sym_kVectorcall; sym_kVarargs;
   sym_kWinapi]; ACTIONS 4531 [sym_kAlias]; ACTIONS 4506 [sym_kCase; sym_kClass; sym_kConst;
   sym_kConstructor; sym_kDestructor; sym_kEnd; sym_kFunction]; ACTIONS 1016 [sym_kInline];
   ACTIONS 4506 [sym_kProcedure; sym_kProperty; sym_kResourcestring; sym_kThreadvar; sym_kType;
   sym_kVar]].

(** State 1639. *)
Definition ts_parse_table_1639 : parse_row :=
  [STATE 2251 [sym__procAttribute]; STATE 15882 [sym_procAttribute];
   STATE 1662 [sym_procExternal; aux_sym_declVar_repeat2]; ACTIONS 12160 [anon_sym_LBRACK];
   ACTIONS 4534 [aux_sym_ppUsesBlock_token1]; ACTIONS 3 [sym__space];
   ACTIONS 5 [sym_ppDirective]; ACTIONS 3 [sym_comment]; ACTIONS 4534 [sym_identifier];
   ACTIONS 4541 [sym_kDefault; sym_kNodefault]; ACTIONS 4544 [sym_kDispId];
   ACTIONS 4534 [sym_kGeneric; sym_kOperator; sym_kPublished]; ACTIONS 4547 [sym_kPublic];
   ACTIONS 4534 [sym_kProtected; sym_kPrivate; sym_kStrict; sym_kRequired; sym_kOptional];
   ACTIONS 4541 [sym_kStatic; sym_kVirtual; sym_kAbstract; sym_kDynamic; sym_kOverride;
   sym_kOverload; sym_kReintroduce; sym_kStdcall; sym_kCdecl; sym_kCppdecl; sym_kPascal;
   sym_kRegister; sym_kMwpascal]; ACTIONS 11857 [sym_kExternal]; ACTIONS 4550 [sym_kMessage];
   ACTIONS 4553 [sym_kDeprecated]; ACTIONS 4541 [sym_kExperimental; sym_kPlatform;
   sym_kUnimplemented; sym_kCvar]; ACTIONS 4556 [sym_kExport]; ACTIONS 4541 [sym_kFar; sym_kNear;
   sym_kSafecall; sym_kAssembler; sym_kNostackframe; sym_kInterrupt; sym_kNoreturn; sym_kIocheck;
   sym_kLocal; sym_kHardfloat; sym_kSoftfloat; sym_kMs_abi_default; sym_kMs_abi_cdecl;
   sym_kSaveregisters; sym_kSysv_abi_default; sym_kSysv_abi_cdecl; sym_kVectorcall; sym_kVarargs;
   sym_kWinapi]; ACTIONS 4559 [sym_kAlias]; ACTIONS 4534 [sym_kCase; sym_kClass; sym_kConst;
   sym_kConstructor; sym_kDestructor; sym_kEnd; sym_kFunction]; ACTIONS 1016 [sym_kInline];
   ACTIONS 4534 [sym_kProcedure; sym_kProperty; sym_kResourcestring; sym_kThreadvar; sym_kType;
   sym_kVar]].

(** State 1640. *)
Definition ts_parse_table_1640 : parse_row :=
  [STATE 2251 [sym__procAttribute]; STATE 15882 [sym_procAttribute];
   STATE 1666 [sym_procExternal; aux_sym_declVar_repeat2]; ACTIONS 12163 [anon_sym_LBRACK];
   ACTIONS 4593 [aux_sym_ppUsesBlock_token1]; ACTIONS 3 [sym__space];
   ACTIONS 5 [sym_ppDirective]; ACTIONS 3 [sym_comment]; ACTIONS 4593 [sym_identifier];
   ACTIONS 4600 [sym_kDefault; sym_kNodefault]; ACTIONS 4603 [sym_kDispId];
   ACTIONS 4593 [sym_kGeneric; sym_kOperator; sym_kPublished]; ACTIONS 4606 [sym_kPublic];
   ACTIONS 4593 [sym_kProtected; sym_kPrivate; sym_kStrict; sym_kRequired; sym_kOptional];
   ACTIONS 4600 [sym_kStatic; sym_kVirtual; sym_kAbstract; sym_kDynamic; sym_kOverride;
   sym_kOverload; sym_kReintroduce; sym_kStdcall; sym_kCdecl; sym_kCppdecl; sym_kPascal;
   sym_kRegister; sym_kMwpascal]; ACTIONS 11857 [sym_kExternal]; ACTIONS 4609 [sym_kMessage];
   ACTIONS 4612 [sym_kDeprecated]; ACTIONS 4600 [sym_kExperimental; sym_kPlatform;
   sym_kUnimplemented; sym_kCvar]; ACTIONS 4615 [sym_kExport]; ACTIONS 4600 [sym_kFar; sym_kNear;
   sym_kSafecall; sym_kAssembler; sym_kNostackframe; sym_kInterrupt; sym_kNoreturn; sym_kIocheck;
   sym_kLocal; sym_kHardfloat; sym_kSoftfloat; sym_kMs_abi_default; sym_kMs_abi_cdecl;
   sym_kSaveregisters; sym_kSysv_abi_default; sym_kSysv_abi_cdecl; sym_kVectorcall; sym_kVarargs;
   sym_kWinapi]; ACTIONS 4618 [sym_kAlias]; ACTIONS 4593 [sym_kCase; sym_kClass; sym_kConst;
   sym_kConstructor; sym_kDestructor; sym_kEnd; sym_kFunction]; ACTIONS 1016 [sym_kInline];
   ACTIONS 4593 [sym_kProcedure; sym_kProperty; sym_kResourcestring; sym_kThreadvar; sym_kType;
   sym_kVar]].

(** State 1641. *)
Definition ts_parse_table_1641 : parse_row :=
  [STATE 2251 [sym__procAttribute]; STATE 15882 [sym_procAttribute];
   STATE 1668 [sym_procExternal; aux_sym_declVar_repeat2]; ACTIONS 12166 [anon_sym_LBRACK];
   ACTIONS 4761 [aux_sym_ppUsesBlock_token1]; ACTIONS 3 [sym__space];
   ACTIONS 5 [sym_ppDirective]; ACTIONS 3 [sym_comment]; ACTIONS 4761 [sym_identifier];
   ACTIONS 4768 [sym_kDefault; sym_kNodefault]; ACTIONS 4771 [sym_kDispId];
   ACTIONS 4761 [sym_kGeneric; sym_kOperator; sym_kPublished]; ACTIONS 4774 [sym_kPublic];
   ACTIONS 4761 [sym_kProtected; sym_kPrivate; sym_kStrict; sym_kRequired; sym_kOptional];
   ACTIONS 4768 [sym_kStatic; sym_kVirtual; sym_kAbstract; sym_kDynamic; sym_kOverride;
   sym_kOverload; sym_kReintroduce; sym_kStdcall; sym_kCdecl; sym_kCppdecl; sym_kPascal;
   sym_kRegister; sym_kMwpascal]; ACTIONS 11857 [sym_kExternal]; ACTIONS 4777 [sym_kMessage];
   ACTIONS 4780 [sym_kDeprecated]; ACTIONS 4768 [sym_kExperimental; sym_kPlatform;
   sym_kUnimplemented; sym_kCvar]; ACTIONS 4783 [sym_kExport]; ACTIONS 4768 [sym_kFar; sym_kNear;
   sym_kSafecall; sym_kAssembler; sym_kNostackframe; sym_kInterrupt; sym_kNoreturn; sym_kIocheck;
   sym_kLocal; sym_kHardfloat; sym_kSoftfloat; sym_kMs_abi_default; sym_kMs_abi_cdecl;
   sym_kSaveregisters; sym_kSysv_abi_default; sym_kSysv_abi_cdecl; sym_kVectorcall; sym_kVarargs;
   sym_kWinapi]; ACTIONS 4786 [sym_kAlias]; ACTIONS 4761 [sym_kCase; sym_kClass; sym_kConst;
   sym_kConstructor; sym_kDestructor; sym_kEnd; sym_kFunction]; ACTIONS 1016 [sym_kInline];
   ACTIONS 4761 [sym_kProcedure; sym_kProperty; sym_kResourcestring; sym_kThreadvar; sym_kType;
   sym_kVar]].

(** State 1642. *)
Definition ts_parse_table_1642 : parse_row :=
  [STATE 2189 [sym__procAttribute]; STATE 14259 [sym_procAttribute];
   STATE 1655 [sym_procExternal; aux_sym_declVar_repeat2]; ACTIONS 12169 [anon_sym_LBRACK];
   ACTIONS 5221 [aux_sym_ppUsesBlock_token1]; ACTIONS 3 [sym__space];
   ACTIONS 5 [sym_ppDirective]; ACTIONS 3 [sym_comment]; ACTIONS 5221 [sym_identifier];
   ACTIONS 5228 [sym_kDefault; sym_kNodefault]; ACTIONS 5231 [sym_kDispId];
   ACTIONS 5221 [sym_kGeneric; sym_kOperator]; ACTIONS 5234 [sym_kPublic];
   ACTIONS 5228 [sym_kStatic; sym_kVirtual; sym_kAbstract; sym_kDynamic; sym_kOverride;
   sym_kOverload; sym_kReintroduce; sym_kStdcall; sym_kCdecl; sym_kCppdecl; sym_kPascal;
   sym_kRegister; sym_kMwpascal]; ACTIONS 11924 [sym_kExternal]; ACTIONS 5237 [sym_kMessage];
   ACTIONS 5240 [sym_kDeprecated]; ACTIONS 5228 [sym_kExperimental; sym_kPlatform;
   sym_kUnimplemented; sym_kCvar]; ACTIONS 5243 [sym_kExport]; ACTIONS 5228 [sym_kFar; sym_kNear;
   sym_kSafecall; sym_kAssembler; sym_kNostackframe; sym_kInterrupt; sym_kNoreturn; sym_kIocheck;
   sym_kLocal; sym_kHardfloat; sym_kSoftfloat; sym_kMs_abi_default; sym_kMs_abi_cdecl;
   sym_kSaveregisters; sym_kSysv_abi_default; sym_kSysv_abi_cdecl; sym_kVectorcall; sym_kVarargs;
   sym_kWinapi]; ACTIONS 5246 [sym_kAlias]; ACTIONS 5221 [sym_kBegin; sym_kClass; sym_kConst;
   sym_kConstructor; sym_kDestructor; sym_kEnd; sym_kExports; sym_kFinalization; sym_kFunction;
   sym_kImplementation; sym_kInitialization]; ACTIONS 1016 [sym_kInline];
   ACTIONS 5221 [sym_kInterface; sym_kLabel; sym_kProcedure; sym_kResourcestring; sym_kThreadvar;
   sym_kType; sym_kUses; sym_kVar]].

(** State 1643. *)
Definition ts_parse_table_1643 : parse_row :=
  [STATE 2189 [sym__procAttribute]; STATE 14259 [sym_procAttribute];
   STATE 1657 [sym_procExternal; aux_sym_declVar_repeat2]; ACTIONS 12172 [anon_sym_LBRACK];
   ACTIONS 5308 [aux_sym_ppUsesBlock_token1]; ACTIONS 3 [sym__space];
   ACTIONS 5 [sym_ppDirective]; ACTIONS 3 [sym_comment]; ACTIONS 5308 [sym_identifier];
   ACTIONS 5315 [sym_kDefault; sym_kNodefault]; ACTIONS 5318 [sym_kDispId];
   ACTIONS 5308 [sym_kGeneric; sym_kOperator]; ACTIONS 5321 [sym_kPublic];
   ACTIONS 5315 [sym_kStatic; sym_kVirtual; sym_kAbstract; sym_kDynamic; sym_kOverride;
   sym_kOverload; sym_kReintroduce; sym_kStdcall; sym_kCdecl; sym_kCppdecl; sym_kPascal;
   sym_kRegister; sym_kMwpascal]; ACTIONS 11924 [sym_kExternal]; ACTIONS 5324 [sym_kMessage];
   ACTIONS 5327 [sym_kDeprecated]; ACTIONS 5315 [sym_kExperimental; sym_kPlatform;
   sym_kUnimplemented; sym_kCvar]; ACTIONS 5330 [sym_kExport]; ACTIONS 5315 [sym_kFar; sym_kNear;
   sym_kSafecall; sym_kAssembler; sym_kNostackframe; sym_kInterrupt; sym_kNoreturn; sym_kIocheck;
   sym_kLocal; sym_kHardfloat; sym_kSoftfloat; sym_kMs_abi_default; sym_kMs_abi_cdecl;
   sym_kSaveregisters; sym_kSysv_abi_default; sym_kSysv_abi_cdecl; sym_kVectorcall; sym_kVarargs;
   sym_kWinapi]; ACTIONS 5333 [sym_kAlias]; ACTIONS 5308 [sym_kBegin; sym_kClass; sym_kConst;
   sym_kConstructor; sym_kDestructor; sym_kEnd; sym_kExports; sym_kFinalization; sym_kFunction;
   sym_kImplementation; sym_kInitialization]; ACTIONS 1016 [sym_kInline];
   ACTIONS 5308 [sym_kInterface; sym_kLabel; sym_kProcedure; sym_kResourcestring; sym_kThreadvar;
   sym_kType; sym_kUses; sym_kVar]].

(** State 1644. *)
Definition ts_parse_table_1644 : parse_row :=
  [STATE 2189 [sym__procAttribute]; STATE 14259 [sym_procAttribute];
   STATE 1609 [sym_procExternal; aux_sym_declVar_repeat2]; ACTIONS 12175 [anon_sym_LBRACK];
   ACTIONS 5373 [aux_sym_ppUsesBlock_token1]; ACTIONS 3 [sym__space];
   ACTIONS 5 [sym_ppDirective]; ACTIONS 3 [sym_comment]; ACTIONS 5373 [sym_identifier];
   ACTIONS 5380 [sym_kDefault; sym_kNodefault]; ACTIONS 5383 [sym_kDispId];
   ACTIONS 5373 [sym_kGeneric; sym_kOperator]; ACTIONS 5386 [sym_kPublic];
   ACTIONS 5380 [sym_kStatic; sym_kVirtual; sym_kAbstract; sym_kDynamic; sym_kOverride;
   sym_kOverload; sym_kReintroduce; sym_kStdcall; sym_kCdecl; sym_kCppdecl; sym_kPascal;
   sym_kRegister; sym_kMwpascal]; ACTIONS 11924 [sym_kExternal]; ACTIONS 5389 [sym_kMessage];
   ACTIONS 5392 [sym_kDeprecated]; ACTIONS 5380 [sym_kExperimental; sym_kPlatform;
   sym_kUnimplemented; sym_kCvar]; ACTIONS 5395 [sym_kExport]; ACTIONS 5380 [sym_kFar; sym_kNear;
   sym_kSafecall; sym_kAssembler; sym_kNostackframe; sym_kInterrupt; sym_kNoreturn; sym_kIocheck;
   sym_kLocal; sym_kHardfloat; sym_kSoftfloat; sym_kMs_abi_default; sym_kMs_abi_cdecl;
   sym_kSaveregisters; sym_kSysv_abi_default; sym_kSysv_abi_cdecl; sym_kVectorcall; sym_kVarargs;
   sym_kWinapi]; ACTIONS 5398 [sym_kAlias]; ACTIONS 5373 [sym_kBegin; sym_kClass; sym_kConst;
   sym_kConstructor; sym_kDestructor; sym_kEnd; sym_kExports; sym_kFinalization; sym_kFunction;
   sym_kImplementation; sym_kInitialization]; ACTIONS 1016 [sym_kInline];
   ACTIONS 5373 [sym_kInterface; sym_kLabel; sym_kProcedure; sym_kResourcestring; sym_kThreadvar;
   sym_kType; sym_kUses; sym_kVar]].

(** State 1645. *)
Definition ts_parse_table_1645 : parse_row :=
  [STATE 2189 [sym__procAttribute]; STATE 14259 [sym_procAttribute];
   STATE 1659 [sym_procExternal; aux_sym_declVar_repeat2]; ACTIONS 12178 [anon_sym_LBRACK];
   ACTIONS 5598 [aux_sym_ppUsesBlock_token1]; ACTIONS 3 [sym__space];
   ACTIONS 5 [sym_ppDirective]; ACTIONS 3 [sym_comment]; ACTIONS 5598 [sym_identifier];
   ACTIONS 5605 [sym_kDefault; sym_kNodefault]; ACTIONS 5608 [sym_kDispId];
   ACTIONS 5598 [sym_kGeneric; sym_kOperator]; ACTIONS 5611 [sym_kPublic];
   ACTIONS 5605 [sym_kStatic; sym_kVirtual; sym_kAbstract; sym_kDynamic; sym_kOverride;
   sym_kOverload; sym_kReintroduce; sym_kStdcall; sym_kCdecl; sym_kCppdecl; sym_kPascal;
   sym_kRegister; sym_kMwpascal]; ACTIONS 11924 [sym_kExternal]; ACTIONS 5614 [sym_kMessage];
   ACTIONS 5617 [sym_kDeprecated]; ACTIONS 5605 [sym_kExperimental; sym_kPlatform;
   sym_kUnimplemented; sym_kCvar]; ACTIONS 5620 [sym_kExport]; ACTIONS 5605 [sym_kFar; sym_kNear;
   sym_kSafecall; sym_kAssembler; sym_kNostackframe; sym_kInterrupt; sym_kNoreturn; sym_kIocheck;
   sym_kLocal; sym_kHardfloat; sym_kSoftfloat; sym_kMs_abi_default; sym_kMs_abi_cdecl;
   sym_kSaveregisters; sym_kSysv_abi_default; sym_kSysv_abi_cdecl; sym_kVectorcall; sym_kVarargs;
   sym_kWinapi]; ACTIONS 5623 [sym_kAlias]; ACTIONS 5598 [sym_kBegin; sym_kClass; sym_kConst;
   sym_kConstructor; sym_kDestructor; sym_kEnd; sym_kExports; sym_kFinalization; sym_kFunction;
   sym_kImplementation; sym_kInitialization]; ACTIONS 1016 [sym_kInline];
   ACTIONS 5598 [sym_kInterface; sym_kLabel; sym_kProcedure; sym_kResourcestring; sym_kThreadvar;
   sym_kType; sym_kUses; sym_kVar]].

(** State 1646. *)
Definition ts_parse_table_1646 : parse_row :=
  [STATE 2189 [sym__procAttribute]; STATE 14259 [sym_procAttribute];
   STATE 1609 [sym_procExternal; aux_sym_declVar_repeat2]; ACTIONS 12181 [anon_sym_LBRACK];
   ACTIONS 5797 [aux_sym_ppUsesBlock_token1]; ACTIONS 3 [sym__space];
   ACTIONS 5 [sym_ppDirective]; ACTIONS 3 [sym_comment]; ACTIONS 5797 [sym_identifier];
   ACTIONS 5804 [sym_kDefault; sym_kNodefault]; ACTIONS 5807 [sym_kDispId];
   ACTIONS 5797 [sym_kGeneric; sym_kOperator]; ACTIONS 5810 [sym_kPublic];
   ACTIONS 5804 [sym_kStatic; sym_kVirtual; sym_kAbstract; sym_kDynamic; sym_kOverride;
   sym_kOverload; sym_kReintroduce; sym_kStdcall; sym_kCdecl; sym_kCppdecl; sym_kPascal;
   sym_kRegister; sym_kMwpascal]; ACTIONS 11924 [sym_kExternal]; ACTIONS 5813 [sym_kMessage];
   ACTIONS 5816 [sym_kDeprecated]; ACTIONS 5804 [sym_kExperimental; sym_kPlatform;
   sym_kUnimplemented; sym_kCvar]; ACTIONS 5819 [sym_kExport]; ACTIONS 5804 [sym_kFar; sym_kNear;
   sym_kSafecall; sym_kAssembler; sym_kNostackframe; sym_kInterrupt; sym_kNoreturn; sym_kIocheck;
   sym_kLocal; sym_kHardfloat; sym_kSoftfloat; sym_kMs_abi_default; sym_kMs_abi_cdecl;
   sym_kSaveregisters; sym_kSysv_abi_default; sym_kSysv_abi_cdecl; sym_kVectorcall; sym_kVarargs;
   sym_kWinapi]; ACTIONS 5822 [sym_kAlias]; ACTIONS 5797 [sym_kBegin; sym_kClass; sym_kConst;
   sym_kConstructor; sym_kDestructor; sym_kEnd; sym_kExports; sym_kFinalization; sym_kFunction;
   sym_kImplementation; sym_kInitialization]; ACTIONS 1016 [sym_kInline];
   ACTIONS 5797 [sym_kInterface; sym_kLabel; sym_kProcedure; sym_kResourcestring; sym_kThreadvar;
   sym_kType; sym_kUses; sym_kVar]].

(** State 1647. *)
Definition ts_parse_table_1647 : parse_row :=
  [STATE 2251 [sym__procAttribute]; STATE 15882 [sym_procAttribute];
   STATE 1670 [sym_procExternal; aux_sym_declVar_repeat2]; ACTIONS 12184 [anon_sym_LBRACK];
   ACTIONS 6525 [aux_sym_ppUsesBlock_token1]; ACTIONS 3 [sym__space];
   ACTIONS 5 [sym_ppDirective]; ACTIONS 3 [sym_comment]; ACTIONS 6525 [sym_identifier];
   ACTIONS 6532 [sym_kDefault; sym_kNodefault]; ACTIONS 6535 [sym_kDispId];
   ACTIONS 6525 [sym_kGeneric; sym_kOperator; sym_kPublished]; ACTIONS 6538 [sym_kPublic];
   ACTIONS 6525 [sym_kProtected; sym_kPrivate; sym_kStrict; sym_kRequired; sym_kOptional];
   ACTIONS 6532 [sym_kStatic; sym_kVirtual; sym_kAbstract; sym_kDynamic; sym_kOverride;
   sym_kOverload; sym_kReintroduce; sym_kStdcall; sym_kCdecl; sym_kCppdecl; sym_kPascal;
   sym_kRegister; sym_kMwpascal]; ACTIONS 11857 [sym_kExternal]; ACTIONS 6541 [sym_kMessage];
   ACTIONS 6544 [sym_kDeprecated]; ACTIONS 6532 [sym_kExperimental; sym_kPlatform;
   sym_kUnimplemented; sym_kCvar]; ACTIONS 6547 [sym_kExport]; ACTIONS 6532 [sym_kFar; sym_kNear;
   sym_kSafecall; sym_kAssembler; sym_kNostackframe; sym_kInterrupt; sym_kNoreturn; sym_kIocheck;
   sym_kLocal; sym_kHardfloat; sym_kSoftfloat; sym_kMs_abi_default; sym_kMs_abi_cdecl;
   sym_kSaveregisters; sym_kSysv_abi_default; sym_kSysv_abi_cdecl; sym_kVectorcall; sym_kVarargs;
   sym_kWinapi]; ACTIONS 6550 [sym_kAlias]; ACTIONS 6525 [sym_kCase; sym_kClass; sym_kConst;
   sym_kConstructor; sym_kDestructor; sym_kEnd; sym_kFunction]; ACTIONS 1016 [sym_kInline];
   ACTIONS 6525 [sym_kProcedure; sym_kProperty; sym_kResourcestring; sym_kThreadvar; sym_kType;
   sym_kVar]].

(** State 1648. *)
Definition ts_parse_table_1648 : parse_row :=
  [STATE 2189 [sym__procAttribute]; STATE 14259 [sym_procAttribute];
   STATE 1609 [sym_procExternal; aux_sym_declVar_repeat2]; ACTIONS 12187 [anon_sym_LBRACK];
   ACTIONS 4674 [aux_sym_ppUsesBlock_token1]; ACTIONS 3 [sym__space];
   ACTIONS 5 [sym_ppDirective]; ACTIONS 3 [sym_comment]; ACTIONS 4674 [sym_identifier];
   ACTIONS 4681 [sym_kDefault; sym_kNodefault]; ACTIONS 4684 [sym_kDispId];
   ACTIONS 4674 [sym_kGeneric; sym_kOperator]; ACTIONS 4687 [sym_kPublic];
   ACTIONS 4681 [sym_kStatic; sym_kVirtual; sym_kAbstract; sym_kDynamic; sym_kOverride;
   sym_kOverload; sym_kReintroduce; sym_kStdcall; sym_kCdecl; sym_kCppdecl; sym_kPascal;
   sym_kRegister; sym_kMwpascal]; ACTIONS 11924 [sym_kExternal]; ACTIONS 4690 [sym_kMessage];
   ACTIONS 4693 [sym_kDeprecated]; ACTIONS 4681 [sym_kExperimental; sym_kPlatform;
   sym_kUnimplemented; sym_kCvar]; ACTIONS 4696 [sym_kExport]; ACTIONS 4681 [sym_kFar; sym_kNear;
   sym_kSafecall; sym_kAssembler; sym_kNostackframe; sym_kInterrupt; sym_kNoreturn; sym_kIocheck;
   sym_kLocal; sym_kHardfloat; sym_kSoftfloat; sym_kMs_abi_default; sym_kMs_abi_cdecl;
   sym_kSaveregisters; sym_kSysv_abi_default; sym_kSysv_abi_cdecl; sym_kVectorcall; sym_kVarargs;
   sym_kWinapi]; ACTIONS 4699 [sym_kAlias]; ACTIONS 4674 [sym_kBegin; sym_kClass; sym_kConst;
   sym_kConstructor; sym_kDestructor; sym_kEnd; sym_kExports; sym_kFinalization; sym_kFunction;
   sym_kImplementation; sym_kInitialization]; ACTIONS 1016 [sym_kInline];
   ACTIONS 4674 [sym_kInterface; sym_kLabel; sym_kProcedure; sym_kResourcestring; sym_kThreadvar;
   sym_kType; sym_kUses; sym_kVar]].

(** State 1649. *)
Definition ts_parse_table_1649 : parse_row :=
  [STATE 2251 [sym__procAttribute]; STATE 15882 [sym_procAttribute];
   STATE 1649 [sym_procExternal; aux_sym_declVar_repeat2]; ACTIONS 12190 [anon_sym_LBRACK];
   ACTIONS 6584 [aux_sym_ppUsesBlock_token1]; ACTIONS 3 [sym__space];
   ACTIONS 5 [sym_ppDirective]; ACTIONS 3 [sym_comment]; ACTIONS 6584 [sym_identifier];
   ACTIONS 6591 [sym_kDefault; sym_kNodefault]; ACTIONS 6594 [sym_kDispId];
   ACTIONS 6584 [sym_kGeneric; sym_kOperator; sym_kPublished]; ACTIONS 6597 [sym_kPublic];
   ACTIONS 6584 [sym_kProtected; sym_kPrivate; sym_kStrict; sym_kRequired; sym_kOptional];
   ACTIONS 6591 [sym_kStatic; sym_kVirtual; sym_kAbstract; sym_kDynamic; sym_kOverride;
   sym_kOverload; sym_kReintroduce; sym_kStdcall; sym_kCdecl; sym_kCppdecl; sym_kPascal;
   sym_kRegister; sym_kMwpascal]; ACTIONS 12193 [sym_kExternal]; ACTIONS 6603 [sym_kMessage];
   ACTIONS 6606 [sym_kDeprecated]; ACTIONS 6591 [sym_kExperimental; sym_kPlatform;
   sym_kUnimplemented; sym_kCvar]; ACTIONS 6609 [sym_kExport]; ACTIONS 6591 [sym_kFar; sym_kNear;
   sym_kSafecall; sym_kAssembler; sym_kNostackframe; sym_kInterrupt; sym_kNoreturn; sym_kIocheck;
   sym_kLocal; sym_kHardfloat; sym_kSoftfloat; sym_kMs_abi_default; sym_kMs_abi_cdecl;
   sym_kSaveregisters; sym_kSysv_abi_default; sym_kSysv_abi_cdecl; sym_kVectorcall; sym_kVarargs;
   sym_kWinapi]; ACTIONS 6612 [sym_kAlias]; ACTIONS 6584 [sym_kCase; sym_kClass; sym_kConst;
   sym_kConstructor; sym_kDestructor; sym_kEnd; sym_kFunction]; ACTIONS 6591 [sym_kInline];
   ACTIONS 6584 [sym_kProcedure; sym_kProperty; sym_kResourcestring; sym_kThreadvar; sym_kType;
   sym_kVar]].

(** State 1650. *)
Definition ts_parse_table_1650 : parse_row :=
  [STATE 2251 [sym__procAttribute]; STATE 15882 [sym_procAttribute];
   STATE 1649 [sym_procExternal; aux_sym_declVar_repeat2]; ACTIONS 12196 [anon_sym_LBRACK];
   ACTIONS 6618 [aux_sym_ppUsesBlock_token1]; ACTIONS 3 [sym__space];
   ACTIONS 5 [sym_ppDirective]; ACTIONS 3 [sym_comment]; ACTIONS 6618 [sym_identifier];
   ACTIONS 6625 [sym_kDefault; sym_kNodefault]; ACTIONS 6628 [sym_kDispId];
   ACTIONS 6618 [sym_kGeneric; sym_kOperator; sym_kPublished]; ACTIONS 6631 [sym_kPublic];
   ACTIONS 6618 [sym_kProtected; sym_kPrivate; sym_kStrict; sym_kRequired; sym_kOptional];
   ACTIONS 6625 [sym_kStatic; sym_kVirtual; sym_kAbstract; sym_kDynamic; sym_kOverride;
   sym_kOverload; sym_kReintroduce; sym_kStdcall; sym_kCdecl; sym_kCppdecl; sym_kPascal;
   sym_kRegister; sym_kMwpascal]; ACTIONS 11857 [sym_kExternal]; ACTIONS 6634 [sym_kMessage];
   ACTIONS 6637 [sym_kDeprecated]; ACTIONS 6625 [sym_kExperimental; sym_kPlatform;
   sym_kUnimplemented; sym_kCvar]; ACTIONS 6640 [sym_kExport]; ACTIONS 6625 [sym_kFar; sym_kNear;
   sym_kSafecall; sym_kAssembler; sym_kNostackframe; sym_kInterrupt; sym_kNoreturn; sym_kIocheck;
   sym_kLocal; sym_kHardfloat; sym_kSoftfloat; sym_kMs_abi_default; sym_kMs_abi_cdecl;
   sym_kSaveregisters; sym_kSysv_abi_default; sym_kSysv_abi_cdecl; sym_kVectorcall; sym_kVarargs;
   sym_kWinapi]; ACTIONS 6643 [sym_kAlias]; ACTIONS 6618 [sym_kCase; sym_kClass; sym_kConst;
   sym_kConstructor; sym_kDestructor; sym_kEnd; sym_kFunction]; ACTIONS 1016 [sym_kInline];
   ACTIONS 6618 [sym_kProcedure; sym_kProperty; sym_kResourcestring; sym_kThreadvar; sym_kType;
   sym_kVar]].

(** State 1651. *)
Definition ts_parse_table_1651 : parse_row :=
  [STATE 2189 [sym__procAttribute]; STATE 14259 [sym_procAttribute];
   STATE 1609 [sym_procExternal; aux_sym_declVar_repeat2]; ACTIONS 12199 [anon_sym_LBRACK];
   ACTIONS 4733 [aux_sym_ppUsesBlock_token1]; ACTIONS 3 [sym__space];
   ACTIONS 5 [sym_ppDirective]; ACTIONS 3 [sym_comment]; ACTIONS 4733 [sym_identifier];
   ACTIONS 4740 [sym_kDefault; sym_kNodefault]; ACTIONS 4743 [sym_kDispId];
   ACTIONS 4733 [sym_kGeneric; sym_kOperator]; ACTIONS 4746 [sym_kPublic];
   ACTIONS 4740 [sym_kStatic; sym_kVirtual; sym_kAbstract; sym_kDynamic; sym_kOverride;
   sym_kOverload; sym_kReintroduce; sym_kStdcall; sym_kCdecl; sym_kCppdecl; sym_kPascal;
   sym_kRegister; sym_kMwpascal]; ACTIONS 11924 [sym_kExternal]; ACTIONS 4749 [sym_kMessage];
   ACTIONS 4752 [sym_kDeprecated]; ACTIONS 4740 [sym_kExperimental; sym_kPlatform;
   sym_kUnimplemented; sym_kCvar]; ACTIONS 4755 [sym_kExport]; ACTIONS 4740 [sym_kFar; sym_kNear;
   sym_kSafecall; sym_kAssembler; sym_kNostackframe; sym_kInterrupt; sym_kNoreturn; sym_kIocheck;
   sym_kLocal; sym_kHardfloat; sym_kSoftfloat; sym_kMs_abi_default; sym_kMs_abi_cdecl;
   sym_kSaveregisters; sym_kSysv_abi_default; sym_kSysv_abi_cdecl; sym_kVectorcall; sym_kVarargs;
   sym_kWinapi]; ACTIONS 4758 [sym_kAlias]; ACTIONS 4733 [sym_kBegin; sym_kClass; sym_kConst;
   sym_kConstructor; sym_kDestructor; sym_kEnd; sym_kExports; sym_kFinalization; sym_kFunction;
   sym_kImplementation; sym_kInitialization]; ACTIONS 1016 [sym_kInline];
   ACTIONS 4733 [sym_kInterface; sym_kLabel; sym_kProcedure; sym_kResourcestring; sym_kThreadvar;
   sym_kType; sym_kUses; sym_kVar]].

(** State 1652. *)
Definition ts_parse_table_1652 : parse_row :=
  [STATE 2189 [sym__procAttribute]; STATE 14259 [sym_procAttribute];
   STATE 1672 [sym_procExternal; aux_sym_declVar_repeat2]; ACTIONS 12202 [anon_sym_LBRACK];
   ACTIONS 4851 [aux_sym_ppUsesBlock_token1]; ACTIONS 3 [sym__space];
   ACTIONS 5 [sym_ppDirective]; ACTIONS 3 [sym_comment]; ACTIONS 4851 [sym_identifier];
   ACTIONS 4858 [sym_kDefault; sym_kNodefault]; ACTIONS 4861 [sym_kDispId];
   ACTIONS 4851 [sym_kGeneric; sym_kOperator]; ACTIONS 4864 [sym_kPublic];
   ACTIONS 4858 [sym_kStatic; sym_kVirtual; sym_kAbstract; sym_kDynamic; sym_kOverride;
   sym_kOverload; sym_kReintroduce; sym_kStdcall; sym_kCdecl; sym_kCppdecl; sym_kPascal;
   sym_kRegister; sym_kMwpascal]; ACTIONS 11924 [sym_kExternal]; ACTIONS 4867 [sym_kMessage];
   ACTIONS 4870 [sym_kDeprecated]; ACTIONS 4858 [sym_kExperimental; sym_kPlatform;
   sym_kUnimplemented; sym_kCvar]; ACTIONS 4873 [sym_kExport]; ACTIONS 4858 [sym_kFar; sym_kNear;
   sym_kSafecall; sym_kAssembler; sym_kNostackframe; sym_kInterrupt; sym_kNoreturn; sym_kIocheck;
   sym_kLocal; sym_kHardfloat; sym_kSoftfloat; sym_kMs_abi_default; sym_kMs_abi_cdecl;
   sym_kSaveregisters; sym_kSysv_abi_default; sym_kSysv_abi_cdecl; sym_kVectorcall; sym_kVarargs;
   sym_kWinapi]; ACTIONS 4876 [sym_kAlias]; ACTIONS 4851 [sym_kBegin; sym_kClass; sym_kConst;
   sym_kConstructor; sym_kDestructor; sym_kEnd; sym_kExports; sym_kFinalization; sym_kFunction;
   sym_kImplementation; sym_kInitialization]; ACTIONS 1016 [sym_kInline];
   ACTIONS 4851 [sym_kInterface; sym_kLabel; sym_kProcedure; sym_kResourcestring; sym_kThreadvar;
   sym_kType; sym_kUses; sym_kVar]].

(** State 1653. *)
Definition ts_parse_table_1653 : parse_row :=
  [STATE 2189 [sym__procAttribute]; STATE 14259 [sym_procAttribute];
   STATE 1609 [sym_procExternal; aux_sym_declVar_repeat2]; ACTIONS 12205 [anon_sym_LBRACK];
   ACTIONS 4907 [aux_sym_ppUsesBlock_token1]; ACTIONS 3 [sym__space];
   ACTIONS 5 [sym_ppDirective]; ACTIONS 3 [sym_comment]; ACTIONS 4907 [sym_identifier];
   ACTIONS 4914 [sym_kDefault; sym_kNodefault]; ACTIONS 4917 [sym_kDispId];
   ACTIONS 4907 [sym_kGeneric; sym_kOperator]; ACTIONS 4920 [sym_kPublic];
   ACTIONS 4914 [sym_kStatic; sym_kVirtual; sym_kAbstract; sym_kDynamic; sym_kOverride;
   sym_kOverload; sym_kReintroduce; sym_kStdcall; sym_kCdecl; sym_kCppdecl; sym_kPascal;
   sym_kRegister; sym_kMwpascal]; ACTIONS 11924 [sym_kExternal]; ACTIONS 4923 [sym_kMessage];
   ACTIONS 4926 [sym_kDeprecated]; ACTIONS 4914 [sym_kExperimental; sym_kPlatform;
   sym_kUnimplemented; sym_kCvar]; ACTIONS 4929 [sym_kExport]; ACTIONS 4914 [sym_kFar; sym_kNear;
   sym_kSafecall; sym_kAssembler; sym_kNostackframe; sym_kInterrupt; sym_kNoreturn; sym_kIocheck;
   sym_kLocal; sym_kHardfloat; sym_kSoftfloat; sym_kMs_abi_default; sym_kMs_abi_cdecl;
   sym_kSaveregisters; sym_kSysv_abi_default; sym_kSysv_abi_cdecl; sym_kVectorcall; sym_kVarargs;
   sym_kWinapi]; ACTIONS 4932 [sym_kAlias]; ACTIONS 4907 [sym_kBegin; sym_kClass; sym_kConst;
   sym_kConstructor; sym_kDestructor; sym_kEnd; sym_kExports; sym_kFinalization; sym_kFunction;
   sym_kImplementation; sym_kInitialization]; ACTIONS 1016 [sym_kInline];
   ACTIONS 4907 [sym_kInterface; sym_kLabel; sym_kProcedure; sym_kResourcestring; sym_kThreadvar;
   sym_kType; sym_kUses; sym_kVar]].

(** State 1654. *)
Definition ts_parse_table_1654 : parse_row :=
  [STATE 2189 [sym__procAttribute]; STATE 14259 [sym_procAttribute];
   STATE 1677 [sym_procExternal; aux_sym_declVar_repeat2]; ACTIONS 12208 [anon_sym_LBRACK];
   ACTIONS 5106 [aux_sym_ppUsesBlock_token1]; ACTIONS 3 [sym__space];
   ACTIONS 5 [sym_ppDirective]; ACTIONS 3 [sym_comment]; ACTIONS 5106 [sym_identifier];
   ACTIONS 5113 [sym_kDefault; sym_kNodefault]; ACTIONS 5116 [sym_kDispId];
   ACTIONS 5106 [sym_kGeneric; sym_kOperator]; ACTIONS 5119 [sym_kPublic];
   ACTIONS 5113 [sym_kStatic; sym_kVirtual; sym_kAbstract; sym_kDynamic; sym_kOverride;
   sym_kOverload; sym_kReintroduce; sym_kStdcall; sym_kCdecl; sym_kCppdecl; sym_kPascal;
   sym_kRegister; sym_kMwpascal]; ACTIONS 11924 [sym_kExternal]; ACTIONS 5122 [sym_kMessage];
   ACTIONS 5125 [sym_kDeprecated]; ACTIONS 5113 [sym_kExperimental; sym_kPlatform;
   sym_kUnimplemented; sym_kCvar]; ACTIONS 5128 [sym_kExport]; ACTIONS 5113 [sym_kFar; sym_kNear;
   sym_kSafecall; sym_kAssembler; sym_kNostackframe; sym_kInterrupt; sym_kNoreturn; sym_kIocheck;
   sym_kLocal; sym_kHardfloat; sym_kSoftfloat; sym_kMs_abi_default; sym_kMs_abi_cdecl;
   sym_kSaveregisters; sym_kSysv_abi_default; sym_kSysv_abi_cdecl; sym_kVectorcall; sym_kVarargs;
   sym_kWinapi]; ACTIONS 5131 [sym_kAlias]; ACTIONS 5106 [sym_kBegin; sym_kClass; sym_kConst;
   sym_kConstructor; sym_kDestructor; sym_kEnd; sym_kExports; sym_kFinalization; sym_kFunction;
   sym_kImplementation; sym_kInitialization]; ACTIONS 1016 [sym_kInline];
   ACTIONS 5106 [sym_kInterface; sym_kLabel; sym_kProcedure; sym_kResourcestring; sym_kThreadvar;
   sym_kType; sym_kUses; sym_kVar]].

(** State 1655. *)
Definition ts_parse_table_1655 : parse_row :=
  [STATE 2189 [sym__procAttribute]; STATE 14259 [sym_procAttribute];
   STATE 1609 [sym_procExternal; aux_sym_declVar_repeat2]; ACTIONS 12211 [anon_sym_LBRACK];
   ACTIONS 5134 [aux_sym_ppUsesBlock_token1]; ACTIONS 3 [sym__space];
   ACTIONS 5 [sym_ppDirective]; ACTIONS 3 [sym_comment]; ACTIONS 5134 [sym_identifier];
   ACTIONS 5141 [sym_kDefault; sym_kNodefault]; ACTIONS 5144 [sym_kDispId];
   ACTIONS 5134 [sym_kGeneric; sym_kOperator]; ACTIONS 5147 [sym_kPublic];
   ACTIONS 5141 [sym_kStatic; sym_kVirtual; sym_kAbstract; sym_kDynamic; sym_kOverride;
   sym_kOverload; sym_kReintroduce; sym_kStdcall; sym_kCdecl; sym_kCppdecl; sym_kPascal;
   sym_kRegister; sym_kMwpascal]; ACTIONS 11924 [sym_kExternal]; ACTIONS 5150 [sym_kMessage];
   ACTIONS 5153 [sym_kDeprecated]; ACTIONS 5141 [sym_kExperimental; sym_kPlatform;
   sym_kUnimplemented; sym_kCvar]; ACTIONS 5156 [sym_kExport]; ACTIONS 5141 [sym_kFar; sym_kNear;
   sym_kSafecall; sym_kAssembler; sym_kNostackframe; sym_kInterrupt; sym_kNoreturn; sym_kIocheck;
   sym_kLocal; sym_kHardfloat; sym_kSoftfloat; sym_kMs_abi_default; sym_kMs_abi_cdecl;
   sym_kSaveregisters; sym_kSysv_abi_default; sym_kSysv_abi_cdecl; sym_kVectorcall; sym_kVarargs;
   sym_kWinapi]; ACTIONS 5159 [sym_kAlias]; ACTIONS 5134 [sym_kBegin; sym_kClass; sym_kConst;
   sym_kConstructor; sym_kDestructor; sym_kEnd; sym_kExports; sym_kFinalization; sym_kFunction;
   sym_kImplementation; sym_kInitialization]; ACTIONS 1016 [sym_kInline];
   ACTIONS 5134 [sym_kInterface; sym_kLabel; sym_kProcedure; sym_kResourcestring; sym_kThreadvar;
   sym_kType; sym_kUses; sym_kVar]].

(** State 1656. *)
Definition ts_parse_table_1656 : parse_row :=
  [STATE 2251 [sym__procAttribute]; STATE 15882 [sym_procAttribute];
   STATE 1671 [sym_procExternal; aux_sym_declVar_repeat2]; ACTIONS 12214 [anon_sym_LBRACK];
   ACTIONS 6677 [aux_sym_ppUsesBlock_token1]; ACTIONS 3 [sym__space];
   ACTIONS 5 [sym_ppDirective]; ACTIONS 3 [sym_comment]; ACTIONS 6677 [sym_identifier];
   ACTIONS 6684 [sym_kDefault; sym_kNodefault]; ACTIONS 6687 [sym_kDispId];
   ACTIONS 6677 [sym_kGeneric; sym_kOperator; sym_kPublished]; ACTIONS 6690 [sym_kPublic];
   ACTIONS 6677 [sym_kProtected; sym_kPrivate; sym_kStrict; sym_kRequired; sym_kOptional];
   ACTIONS 6684 [sym_kStatic; sym_kVirtual; sym_kAbstract; sym_kDynamic; sym_kOverride;
   sym_kOverload; sym_kReintroduce; sym_kStdcall; sym_kCdecl; sym_kCppdecl; sym_kPascal;
   sym_kRegister; sym_kMwpascal]; ACTIONS 11857 [sym_kExternal]; ACTIONS 6693 [sym_kMessage];
   ACTIONS 6696 [sym_kDeprecated]; ACTIONS 6684 [sym_kExperimental; sym_kPlatform;
   sym_kUnimplemented; sym_kCvar]; ACTIONS 6699 [sym_kExport]; ACTIONS 6684 [sym_kFar; sym_kNear;
   sym_kSafecall; sym_kAssembler; sym_kNostackframe; sym_kInterrupt; sym_kNoreturn; sym_kIocheck;
   sym_kLocal; sym_kHardfloat; sym_kSoftfloat; sym_kMs_abi_default; sym_kMs_abi_cdecl;
   sym_kSaveregisters; sym_kSysv_abi_default; sym_kSysv_abi_cdecl; sym_kVectorcall; sym_kVarargs;
   sym_kWinapi]; ACTIONS 6702 [sym_kAlias]; ACTIONS 6677 [sym_kCase; sym_kClass; sym_kConst;
   sym_kConstructor; sym_kDestructor; sym_kEnd; sym_kFunction]; ACTIONS 1016 [sym_kInline];
   ACTIONS 6677 [sym_kProcedure; sym_kProperty; sym_kResourcestring; sym_kThreadvar; sym_kType;
   sym_kVar]].

(** State 1657. *)
Definition ts_parse_table_1657 : parse_row :=
  [STATE 2189 [sym__procAttribute]; STATE 14259 [sym_procAttribute];
   STATE 1609 [sym_procExternal; aux_sym_declVar_repeat2]; ACTIONS 12217 [anon_sym_LBRACK];
   ACTIONS 5162 [aux_sym_ppUsesBlock_token1]; ACTIONS 3 [sym__space];
   ACTIONS 5 [sym_ppDirective]; ACTIONS 3 [sym_comment]; ACTIONS 5162 [sym_identifier];
   ACTIONS 5169 [sym_kDefault; sym_kNodefault]; ACTIONS 5172 [sym_kDispId];
   ACTIONS 5162 [sym_kGeneric; sym_kOperator]; ACTIONS 5175 [sym_kPublic];
   ACTIONS 5169 [sym_kStatic; sym_kVirtual; sym_kAbstract; sym_kDynamic; sym_kOverride;
   sym_kOverload; sym_kReintroduce; sym_kStdcall; sym_kCdecl; sym_kCppdecl; sym_kPascal;
   sym_kRegister; sym_kMwpascal]; ACTIONS 11924 [sym_kExternal]; ACTIONS 5178 [sym_kMessage];
   ACTIONS 5181 [sym_kDeprecated]; ACTIONS 5169 [sym_kExperimental; sym_kPlatform;
   sym_kUnimplemented; sym_kCvar]; ACTIONS 5184 [sym_kExport]; ACTIONS 5169 [sym_kFar; sym_kNear;
   sym_kSafecall; sym_kAssembler; sym_kNostackframe; sym_kInterrupt; sym_kNoreturn; sym_kIocheck;
   sym_kLocal; sym_kHardfloat; sym_kSoftfloat; sym_kMs_abi_default; sym_kMs_abi_cdecl;
   sym_kSaveregisters; sym_kSysv_abi_default; sym_kSysv_abi_cdecl; sym_kVectorcall; sym_kVarargs;
   sym_kWinapi]; ACTIONS 5187 [sym_kAlias]; ACTIONS 5162 [sym_kBegin; sym_kClass; sym_kConst;
   sym_kConstructor; sym_kDestructor; sym_kEnd; sym_kExports; sym_kFinalization; sym_kFunction;
   sym_kImplementation; sym_kInitialization]; ACTIONS 1016 [sym_kInline];
   ACTIONS 5162 [sym_kInterface; sym_kLabel; sym_kProcedure; sym_kResourcestring; sym_kThreadvar;
   sym_kType; sym_kUses; sym_kVar]].

(** State 1658. *)
Definition ts_parse_table_1658 : parse_row :=
  [STATE 2251 [sym__procAttribute]; STATE 15882 [sym_procAttribute];
   STATE 1649 [sym_procExternal; aux_sym_declVar_repeat2]; ACTIONS 12220 [anon_sym_LBRACK];
   ACTIONS 6736 [aux_sym_ppUsesBlock_token1]; ACTIONS 3 [sym__space];
   ACTIONS 5 [sym_ppDirective]; ACTIONS 3 [sym_comment]; ACTIONS 6736 [sym_identifier];
   ACTIONS 6743 [sym_kDefault; sym_kNodefault]; ACTIONS 6746 [sym_kDispId];
   ACTIONS 6736 [sym_kGeneric; sym_kOperator; sym_kPublished]; ACTIONS 6749 [sym_kPublic];
   ACTIONS 6736 [sym_kProtected; sym_kPrivate; sym_kStrict; sym_kRequired; sym_kOptional];
   ACTIONS 6743 [sym_kStatic; sym_kVirtual; sym_kAbstract; sym_kDynamic; sym_kOverride;
   sym_kOverload; sym_kReintroduce; sym_kStdcall; sym_kCdecl; sym_kCppdecl; sym_kPascal;
   sym_kRegister; sym_kMwpascal]; ACTIONS 11857 [sym_kExternal]; ACTIONS 6752 [sym_kMessage];
   ACTIONS 6755 [sym_kDeprecated]; ACTIONS 6743 [sym_kExperimental; sym_kPlatform;
   sym_kUnimplemented; sym_kCvar]; ACTIONS 6758 [sym_kExport]; ACTIONS 6743 [sym_kFar; sym_kNear;
   sym_kSafecall; sym_kAssembler; sym_kNostackframe; sym_kInterrupt; sym_kNoreturn; sym_kIocheck;
   sym_kLocal; sym_kHardfloat; sym_kSoftfloat; sym_kMs_abi_default; sym_kMs_abi_cdecl;
   sym_kSaveregisters; sym_kSysv_abi_default; sym_kSysv_abi_cdecl; sym_kVectorcall; sym_kVarargs;
   sym_kWinapi]; ACTIONS 6761 [sym_kAlias]; ACTIONS 6736 [sym_kCase; sym_kClass; sym_kConst;
   sym_kConstructor; sym_kDestructor; sym_kEnd; sym_kFunction]; ACTIONS 1016 [sym_kInline];
   ACTIONS 6736 [sym_kProcedure; sym_kProperty; sym_kResourcestring; sym_kThreadvar; sym_kType;
   sym_kVar]].

(** State 1659. *)
Definition ts_parse_table_1659 : parse_row :=
  [STATE 2189 [sym__procAttribute]; STATE 14259 [sym_procAttribute];
   STATE 1609 [sym_procExternal; aux_sym_declVar_repeat2]; ACTIONS 12223 [anon_sym_LBRACK];
   ACTIONS 5249 [aux_sym_ppUsesBlock_token1]; ACTIONS 3 [sym__space];
   ACTIONS 5 [sym_ppDirective]; ACTIONS 3 [sym_comment]; ACTIONS 5249 [sym_identifier];
   ACTIONS 5256 [sym_kDefault; sym_kNodefault]; ACTIONS 5259 [sym_kDispId];
   ACTIONS 5249 [sym_kGeneric; sym_kOperator]; ACTIONS 5262 [sym_kPublic];
   ACTIONS 5256 [sym_kStatic; sym_kVirtual; sym_kAbstract; sym_kDynamic; sym_kOverride;
   sym_kOverload; sym_kReintroduce; sym_kStdcall; sym_kCdecl; sym_kCppdecl; sym_kPascal;
   sym_kRegister; sym_kMwpascal]; ACTIONS 11924 [sym_kExternal]; ACTIONS 5265 [sym_kMessage];
   ACTIONS 5268 [sym_kDeprecated]; ACTIONS 5256 [sym_kExperimental; sym_kPlatform;
   sym_kUnimplemented; sym_kCvar]; ACTIONS 5271 [sym_kExport]; ACTIONS 5256 [sym_kFar; sym_kNear;
   sym_kSafecall; sym_kAssembler; sym_kNostackframe; sym_kInterrupt; sym_kNoreturn; sym_kIocheck;
   sym_kLocal; sym_kHardfloat; sym_kSoftfloat; sym_kMs_abi_default; sym_kMs_abi_cdecl;
   sym_kSaveregisters; sym_kSysv_abi_default; sym_kSysv_abi_cdecl; sym_kVectorcall; sym_kVarargs;
   sym_kWinapi]; ACTIONS 5274 [sym_kAlias]; ACTIONS 5249 [sym_kBegin; sym_kClass; sym_kConst;
   sym_kConstructor; sym_kDestructor; sym_kEnd; sym_kExports; sym_kFinalization; sym_kFunction;
   sym_kImplementation; sym_kInitialization]; ACTIONS 1016 [sym_kInline];
   ACTIONS 5249 [sym_kInterface; sym_kLabel; sym_kProcedure; sym_kResourcestring; sym_kThreadvar;
   sym_kType; sym_kUses; sym_kVar]].

(** State 1660. *)
Definition ts_parse_table_1660 : parse_row :=
  [STATE 2251 [sym__procAttribute]; STATE 15882 [sym_procAttribute];
   STATE 1649 [sym_procExternal; aux_sym_declVar_repeat2]; ACTIONS 12226 [anon_sym_LBRACK];
   ACTIONS 6767 [aux_sym_ppUsesBlock_token1]; ACTIONS 3 [sym__space];
   ACTIONS 5 [sym_ppDirective]; ACTIONS 3 [sym_comment]; ACTIONS 6767 [sym_identifier];
   ACTIONS 6774 [sym_kDefault; sym_kNodefault]; ACTIONS 6777 [sym_kDispId];
   ACTIONS 6767 [sym_kGeneric; sym_kOperator; sym_kPublished]; ACTIONS 6780 [sym_kPublic];
   ACTIONS 6767 [sym_kProtected; sym_kPrivate; sym_kStrict; sym_kRequired; sym_kOptional];
   ACTIONS 6774 [sym_kStatic; sym_kVirtual; sym_kAbstract; sym_kDynamic; sym_kOverride;
   sym_kOverload; sym_kReintroduce; sym_kStdcall; sym_kCdecl; sym_kCppdecl; sym_kPascal;
   sym_kRegister; sym_kMwpascal]; ACTIONS 11857 [sym_kExternal]; ACTIONS 6783 [sym_kMessage];
   ACTIONS 6786 [sym_kDeprecated]; ACTIONS 6774 [sym_kExperimental; sym_kPlatform;
   sym_kUnimplemented; sym_kCvar]; ACTIONS 6789 [sym_kExport]; ACTIONS 6774 [sym_kFar; sym_kNear;
   sym_kSafecall; sym_kAssembler; sym_kNostackframe; sym_kInterrupt; sym_kNoreturn; sym_kIocheck;
   sym_kLocal; sym_kHardfloat; sym_kSoftfloat; sym_kMs_abi_default; sym_kMs_abi_cdecl;
   sym_kSaveregisters; sym_kSysv_abi_default; sym_kSysv_abi_cdecl; sym_kVectorcall; sym_kVarargs;
   sym_kWinapi]; ACTIONS 6792 [sym_kAlias]; ACTIONS 6767 [sym_kCase; sym_kClass; sym_kConst;
   sym_kConstructor; sym_kDestructor; sym_kEnd; sym_kFunction]; ACTIONS 1016 [sym_kInline];
   ACTIONS 6767 [sym_kProcedure; sym_kProperty; sym_kResourcestring; sym_kThreadvar; sym_kType;
   sym_kVar]].

(** State 1661. *)
Definition ts_parse_table_1661 : parse_row :=
  [STATE 2251 [sym__procAttribute]; STATE 15882 [sym_procAttribute];
   STATE 1674 [sym_procExternal; aux_sym_declVar_repeat2]; ACTIONS 12229 [anon_sym_LBRACK];
   ACTIONS 6823 [aux_sym_ppUsesBlock_token1]; ACTIONS 3 [sym__space];
   ACTIONS 5 [sym_ppDirective]; ACTIONS 3 [sym_comment]; ACTIONS 6823 [sym_identifier];
   ACTIONS 6830 [sym_kDefault; sym_kNodefault]; ACTIONS 6833 [sym_kDispId];
   ACTIONS 6823 [sym_kGeneric; sym_kOperator; sym_kPublished]; ACTIONS 6836 [sym_kPublic];
   ACTIONS 6823 [sym_kProtected; sym_kPrivate; sym_kStrict; sym_kRequired; sym_kOptional];
   ACTIONS 6830 [sym_kStatic; sym_kVirtual; sym_kAbstract; sym_kDynamic; sym_kOverride;
   sym_kOverload; sym_kReintroduce; sym_kStdcall; sym_kCdecl; sym_kCppdecl; sym_kPascal;
   sym_kRegister; sym_kMwpascal]; ACTIONS 11857 [sym_kExternal]; ACTIONS 6839 [sym_kMessage];
   ACTIONS 6842 [sym_kDeprecated]; ACTIONS 6830 [sym_kExperimental; sym_kPlatform;
   sym_kUnimplemented; sym_kCvar]; ACTIONS 6845 [sym_kExport]; ACTIONS 6830 [sym_kFar; sym_kNear;
   sym_kSafecall; sym_kAssembler; sym_kNostackframe; sym_kInterrupt; sym_kNoreturn; sym_kIocheck;
   sym_kLocal; sym_kHardfloat; sym_kSoftfloat; sym_kMs_abi_default; sym_kMs_abi_cdecl;
   sym_kSaveregisters; sym_kSysv_abi_default; sym_kSysv_abi_cdecl; sym_kVectorcall; sym_kVarargs;
   sym_kWinapi]; ACTIONS 6848 [sym_kAlias]; ACTIONS 6823 [sym_kCase; sym_kClass; sym_kConst;
   sym_kConstructor; sym_kDestructor; sym_kEnd; sym_kFunction]; ACTIONS 1016 [sym_kInline];
   ACTIONS 6823 [sym_kProcedure; sym_kProperty; sym_kResourcestring; sym_kThreadvar; sym_kType;
   sym_kVar]].

(** State 1662. *)
Definition ts_parse_table_1662 : parse_row :=
  [STATE 2251 [sym__procAttribute]; STATE 15882 [sym_procAttribute];
   STATE 1649 [sym_procExternal; aux_sym_declVar_repeat2]; ACTIONS 12232 [anon_sym_LBRACK];
   ACTIONS 6854 [aux_sym_ppUsesBlock_token1]; ACTIONS 3 [sym__space];
   ACTIONS 5 [sym_ppDirective]; ACTIONS 3 [sym_comment]; ACTIONS 6854 [sym_identifier];
   ACTIONS 6861 [sym_kDefault; sym_kNodefault]; ACTIONS 6864 [sym_kDispId];
   ACTIONS 6854 [sym_kGeneric; sym_kOperator; sym_kPublished]; ACTIONS 6867 [sym_kPublic];
   ACTIONS 6854 [sym_kProtected; sym_kPrivate; sym_kStrict; sym_kRequired; sym_kOptional];
   ACTIONS 6861 [sym_kStatic; sym_kVirtual; sym_kAbstract; sym_kDynamic; sym_kOverride;
   sym_kOverload; sym_kReintroduce; sym_kStdcall; sym_kCdecl; sym_kCppdecl; sym_kPascal;
   sym_kRegister; sym_kMwpascal]; ACTIONS 11857 [sym_kExternal]; ACTIONS 6870 [sym_kMessage];
   ACTIONS 6873 [sym_kDeprecated]; ACTIONS 6861 [sym_kExperimental; sym_kPlatform;
   sym_kUnimplemented; sym_kCvar]; ACTIONS 6876 [sym_kExport]; ACTIONS 6861 [sym_kFar; sym_kNear;
   sym_kSafecall; sym_kAssembler; sym_kNostackframe; sym_kInterrupt; sym_kNoreturn; sym_kIocheck;
   sym_kLocal; sym_kHardfloat; sym_kSoftfloat; sym_kMs_abi_default; sym_kMs_abi_cdecl;
   sym_kSaveregisters; sym_kSysv_abi_default; sym_kSysv_abi_cdecl; sym_kVectorcall; sym_kVarargs;
   sym_kWinapi]; ACTIONS 6879 [sym_kAlias]; ACTIONS 6854 [sym_kCase; sym_kClass; sym_kConst;
   sym_kConstructor; sym_kDestructor; sym_kEnd; sym_kFunction]; ACTIONS 1016 [sym_kInline];
   ACTIONS 6854 [sym_kProcedure; sym_kProperty; sym_kResourcestring; sym_kThreadvar; sym_kType;
   sym_kVar]].

(** State 1663. *)
Definition ts_parse_table_1663 : parse_row :=
  [STATE 2251 [sym__procAttribute]; STATE 15882 [sym_procAttribute];
   STATE 1676 [sym_procExternal; aux_sym_declVar_repeat2]; ACTIONS 12235 [anon_sym_LBRACK];
   ACTIONS 6913 [aux_sym_ppUsesBlock_token1]; ACTIONS 3 [sym__space];
   ACTIONS 5 [sym_ppDirective]; ACTIONS 3 [sym_comment]; ACTIONS 6913 [sym_identifier];
   ACTIONS 6920 [sym_kDefault; sym_kNodefault]; ACTIONS 6923 [sym_kDispId];
   ACTIONS 6913 [sym_kGeneric; sym_kOperator; sym_kPublished]; ACTIONS 6926 [sym_kPublic];
   ACTIONS 6913 [sym_kProtected; sym_kPrivate; sym_kStrict; sym_kRequired; sym_kOptional];
   ACTIONS 6920 [sym_kStatic; sym_kVirtual; sym_kAbstract; sym_kDynamic; sym_kOverride;
   sym_kOverload; sym_kReintroduce; sym_kStdcall; sym_kCdecl; sym_kCppdecl; sym_kPascal;
   sym_kRegister; sym_kMwpascal]; ACTIONS 11857 [sym_kExternal]; ACTIONS 6929 [sym_kMessage];
   ACTIONS 6932 [sym_kDeprecated]; ACTIONS 6920 [sym_kExperimental; sym_kPlatform;
   sym_kUnimplemented; sym_kCvar]; ACTIONS 6935 [sym_kExport]; ACTIONS 6920 [sym_kFar; sym_kNear;
   sym_kSafecall; sym_kAssembler; sym_kNostackframe; sym_kInterrupt; sym_kNoreturn; sym_kIocheck;
   sym_kLocal; sym_kHardfloat; sym_kSoftfloat; sym_kMs_abi_default; sym_kMs_abi_cdecl;
   sym_kSaveregisters; sym_kSysv_abi_default; sym_kSysv_abi_cdecl; sym_kVectorcall; sym_kVarargs;
   sym_kWinapi]; ACTIONS 6938 [sym_kAlias]; ACTIONS 6913 [sym_kCase; sym_kClass; sym_kConst;
   sym_kConstructor; sym_kDestructor; sym_kEnd; sym_kFunction]; ACTIONS 1016 [sym_kInline];
   ACTIONS 6913 [sym_kProcedure; sym_kProperty; sym_kResourcestring; sym_kThreadvar; sym_kType;
   sym_kVar]].

(** State 1664. *)
Definition ts_parse_table_1664 : parse_row :=
  [STATE 2251 [sym__procAttribute]; STATE 15882 [sym_procAttribute];
   STATE 1678 [sym_procExternal; aux_sym_declVar_repeat2]; ACTIONS 12238 [anon_sym_LBRACK];
   ACTIONS 6944 [aux_sym_ppUsesBlock_token1]; ACTIONS 3 [sym__space];
   ACTIONS 5 [sym_ppDirective]; ACTIONS 3 [sym_comment]; ACTIONS 6944 [sym_identifier];
   ACTIONS 6951 [sym_kDefault; sym_kNodefault]; ACTIONS 6954 [sym_kDispId];
   ACTIONS 6944 [sym_kGeneric; sym_kOperator; sym_kPublished]; ACTIONS 6957 [sym_kPublic];
   ACTIONS 6944 [sym_kProtected; sym_kPrivate; sym_kStrict; sym_kRequired; sym_kOptional];
   ACTIONS 6951 [sym_kStatic; sym_kVirtual; sym_kAbstract; sym_kDynamic; sym_kOverride;
   sym_kOverload; sym_kReintroduce; sym_kStdcall; sym_kCdecl; sym_kCppdecl; sym_kPascal;
   sym_kRegister; sym_kMwpascal]; ACTIONS 11857 [sym_kExternal]; ACTIONS 6960 [sym_kMessage];
   ACTIONS 6963 [sym_kDeprecated]; ACTIONS 6951 [sym_kExperimental; sym_kPlatform;
   sym_kUnimplemented; sym_kCvar]; ACTIONS 6966 [sym_kExport]; ACTIONS 6951 [sym_kFar; sym_kNear;
   sym_kSafecall; sym_kAssembler; sym_kNostackframe; sym_kInterrupt; sym_kNoreturn; sym_kIocheck;
   sym_kLocal; sym_kHardfloat; sym_kSoftfloat; sym_kMs_abi_default; sym_kMs_abi_cdecl;
   sym_kSaveregisters; sym_kSysv_abi_default; sym_kSysv_abi_cdecl; sym_kVectorcall; sym_kVarargs;
   sym_kWinapi]; ACTIONS 6969 [sym_kAlias]; ACTIONS 6944 [sym_kCase; sym_kClass; sym_kConst;
   sym_kConstructor; sym_kDestructor; sym_kEnd; sym_kFunction]; ACTIONS 1016 [sym_kInline];
   ACTIONS 6944 [sym_kProcedure; sym_kProperty; sym_kResourcestring; sym_kThreadvar; sym_kType;
   sym_kVar]].

(** State 1665. *)
Definition ts_parse_table_1665 : parse_row :=
  [STATE 2251 [sym__procAttribute]; STATE 15882 [sym_procAttribute];
   STATE 1680 [sym_procExternal; aux_sym_declVar_repeat2]; ACTIONS 12241 [anon_sym_LBRACK];
   ACTIONS 6972 [aux_sym_ppUsesBlock_token1]; ACTIONS 3 [sym__space];
   ACTIONS 5 [sym_ppDirective]; ACTIONS 3 [sym_comment]; ACTIONS 6972 [sym_identifier];
   ACTIONS 6979 [sym_kDefault; sym_kNodefault]; ACTIONS 6982 [sym_kDispId];
   ACTIONS 6972 [sym_kGeneric; sym_kOperator; sym_kPublished]; ACTIONS 6985 [sym_kPublic];
   ACTIONS 6972 [sym_kProtected; sym_kPrivate; sym_kStrict; sym_kRequired; sym_kOptional];
   ACTIONS 6979 [sym_kStatic; sym_kVirtual; sym_kAbstract; sym_kDynamic; sym_kOverride;
   sym_kOverload; sym_kReintroduce; sym_kStdcall; sym_kCdecl; sym_kCppdecl; sym_kPascal;
   sym_kRegister; sym_kMwpascal]; ACTIONS 11857 [sym_kExternal]; ACTIONS 6988 [sym_kMessage];
   ACTIONS 6991 [sym_kDeprecated]; ACTIONS 6979 [sym_kExperimental; sym_kPlatform;
   sym_kUnimplemented; sym_kCvar]; ACTIONS 6994 [sym_kExport]; ACTIONS 6979 [sym_kFar; sym_kNear;
   sym_kSafecall; sym_kAssembler; sym_kNostackframe; sym_kInterrupt; sym_kNoreturn; sym_kIocheck;
   sym_kLocal; sym_kHardfloat; sym_kSoftfloat; sym_kMs_abi_default; sym_kMs_abi_cdecl;
   sym_kSaveregisters; sym_kSysv_abi_default; sym_kSysv_abi_cdecl; sym_kVectorcall; sym_kVarargs;
   sym_kWinapi]; ACTIONS 6997 [sym_kAlias]; ACTIONS 6972 [sym_kCase; sym_kClass; sym_kConst;
   sym_kConstructor; sym_kDestructor; sym_kEnd; sym_kFunction]; ACTIONS 1016 [sym_kInline];
   ACTIONS 6972 [sym_kProcedure; sym_kProperty; sym_kResourcestring; sym_kThreadvar; sym_kType;
   sym_kVar]].

(** State 1666. *)
Definition ts_parse_table_1666 : parse_row :=
  [STATE 2251 [sym__procAttribute]; STATE 15882 [sym_procAttribute];
   STATE 1649 [sym_procExternal; aux_sym_declVar_repeat2]; ACTIONS 12244 [anon_sym_LBRACK];
   ACTIONS 7031 [aux_sym_ppUsesBlock_token1]; ACTIONS 3 [sym__space];
   ACTIONS 5 [sym_ppDirective]; ACTIONS 3 [sym_comment]; ACTIONS 7031 [sym_identifier];
   ACTIONS 7038 [sym_kDefault; sym_kNodefault]; ACTIONS 7041 [sym_kDispId];
   ACTIONS 7031 [sym_kGeneric; sym_kOperator; sym_kPublished]; ACTIONS 7044 [sym_kPublic];
   ACTIONS 7031 [sym_kProtected; sym_kPrivate; sym_kStrict; sym_kRequired; sym_kOptional];
   ACTIONS 7038 [sym_kStatic; sym_kVirtual; sym_kAbstract; sym_kDynamic; sym_kOverride;
   sym_kOverload; sym_kReintroduce; sym_kStdcall; sym_kCdecl; sym_kCppdecl; sym_kPascal;
   sym_kRegister; sym_kMwpascal]; ACTIONS 11857 [sym_kExternal]; ACTIONS 7047 [sym_kMessage];
   ACTIONS 7050 [sym_kDeprecated]; ACTIONS 7038 [sym_kExperimental; sym_kPlatform;
   sym_kUnimplemented; sym_kCvar]; ACTIONS 7053 [sym_kExport]; ACTIONS 7038 [sym_kFar; sym_kNear;
   sym_kSafecall; sym_kAssembler; sym_kNostackframe; sym_kInterrupt; sym_kNoreturn; sym_kIocheck;
   sym_kLocal; sym_kHardfloat; sym_kSoftfloat; sym_kMs_abi_default; sym_kMs_abi_cdecl;
   sym_kSaveregisters; sym_kSysv_abi_default; sym_kSysv_abi_cdecl; sym_kVectorcall; sym_kVarargs;
   sym_kWinapi]; ACTIONS 7056 [sym_kAlias]; ACTIONS 7031 [sym_kCase; sym_kClass; sym_kConst;
   sym_kConstructor; sym_kDestructor; sym_kEnd; sym_kFunction]; ACTIONS 1016 [sym_kInline];
   ACTIONS 7031 [sym_kProcedure; sym_kProperty; sym_kResourcestring; sym_kThreadvar; sym_kType;
   sym_kVar]].

(** State 1667. *)
Definition ts_parse_table_1667 : parse_row :=
  [STATE 2251 [sym__procAttribute]; STATE 15882 [sym_procAttribute];
   STATE 1684 [sym_procExternal; aux_sym_declVar_repeat2]; ACTIONS 12247 [anon_sym_LBRACK];
   ACTIONS 7090 [aux_sym_ppUsesBlock_token1]; ACTIONS 3 [sym__space];
   ACTIONS 5 [sym_ppDirective]; ACTIONS 3 [sym_comment]; ACTIONS 7090 [sym_identifier];
   ACTIONS 7097 [sym_kDefault; sym_kNodefault]; ACTIONS 7100 [sym_kDispId];
   ACTIONS 7090 [sym_kGeneric; sym_kOperator; sym_kPublished]; ACTIONS 7103 [sym_kPublic];
   ACTIONS 7090 [sym_kProtected; sym_kPrivate; sym_kStrict; sym_kRequired; sym_kOptional];
   ACTIONS 7097 [sym_kStatic; sym_kVirtual; sym_kAbstract; sym_kDynamic; sym_kOverride;
   sym_kOverload; sym_kReintroduce; sym_kStdcall; sym_kCdecl; sym_kCppdecl; sym_kPascal;
   sym_kRegister; sym_kMwpascal]; ACTIONS 11857 [sym_kExternal]; ACTIONS 7106 [sym_kMessage];
   ACTIONS 7109 [sym_kDeprecated]; ACTIONS 7097 [sym_kExperimental; sym_kPlatform;
   sym_kUnimplemented; sym_kCvar]; ACTIONS 7112 [sym_kExport]; ACTIONS 7097 [sym_kFar; sym_kNear;
   sym_kSafecall; sym_kAssembler; sym_kNostackframe; sym_kInterrupt; sym_kNoreturn; sym_kIocheck;
   sym_kLocal; sym_kHardfloat; sym_kSoftfloat; sym_kMs_abi_default; sym_kMs_abi_cdecl;
   sym_kSaveregisters; sym_kSysv_abi_default; sym_kSysv_abi_cdecl; sym_kVectorcall; sym_kVarargs;
   sym_kWinapi]; ACTIONS 7115 [sym_kAlias]; ACTIONS 7090 [sym_kCase; sym_kClass; sym_kConst;
   sym_kConstructor; sym_kDestructor; sym_kEnd; sym_kFunction]; ACTIONS 1016 [sym_kInline];
   ACTIONS 7090 [sym_kProcedure; sym_kProperty; sym_kResourcestring; sym_kThreadvar; sym_kType;
   sym_kVar]].

(** State 1668. *)
Definition ts_parse_table_1668 : parse_row :=
  [STATE 2251 [sym__procAttribute]; STATE 15882 [sym_procAttribute];
   STATE 1649 [sym_procExternal; aux_sym_declVar_repeat2]; ACTIONS 12250 [anon_sym_LBRACK];
   ACTIONS 7118 [aux_sym_ppUsesBlock_token1]; ACTIONS 3 [sym__space];
   ACTIONS 5 [sym_ppDirective]; ACTIONS 3 [sym_comment]; ACTIONS 7118 [sym_identifier];
   ACTIONS 7125 [sym_kDefault; sym_kNodefault]; ACTIONS 7128 [sym_kDispId];
   ACTIONS 7118 [sym_kGeneric; sym_kOperator; sym_kPublished]; ACTIONS 7131 [sym_kPublic];
   ACTIONS 7118 [sym_kProtected; sym_kPrivate; sym_kStrict; sym_kRequired; sym_kOptional];
   ACTIONS 7125 [sym_kStatic; sym_kVirtual; sym_kAbstract; sym_kDynamic; sym_kOverride;
   sym_kOverload; sym_kReintroduce; sym_kStdcall; sym_kCdecl; sym_kCppdecl; sym_kPascal;
   sym_kRegister; sym_kMwpascal]; ACTIONS 11857 [sym_kExternal]; ACTIONS 7134 [sym_kMessage];
   ACTIONS 7137 [sym_kDeprecated]; ACTIONS 7125 [sym_kExperimental; sym_kPlatform;
   sym_kUnimplemented; sym_kCvar]; ACTIONS 7140 [sym_kExport]; ACTIONS 7125 [sym_kFar; sym_kNear;
   sym_kSafecall; sym_kAssembler; sym_kNostackframe; sym_kInterrupt; sym_kNoreturn; sym_kIocheck;
   sym_kLocal; sym_kHardfloat; sym_kSoftfloat; sym_kMs_abi_default; sym_kMs_abi_cdecl;
   sym_kSaveregisters; sym_kSysv_abi_default; sym_kSysv_abi_cdecl; sym_kVectorcall; sym_kVarargs;
   sym_kWinapi]; ACTIONS 7143 [sym_kAlias]; ACTIONS 7118 [sym_kCase; sym_kClass; sym_kConst;
   sym_kConstructor; sym_kDestructor; sym_kEnd; sym_kFunction]; ACTIONS 1016 [sym_kInline];
   ACTIONS 7118 [sym_kProcedure; sym_kProperty; sym_kResourcestring; sym_kThreadvar; sym_kType;
   sym_kVar]].

(** State 1669. *)
Definition ts_parse_table_1669 : parse_row :=
  [STATE 2251 [sym__procAttribute]; STATE 15882 [sym_procAttribute];
   STATE 1649 [sym_procExternal; aux_sym_declVar_repeat2]; ACTIONS 12253 [anon_sym_LBRACK];
   ACTIONS 5797 [aux_sym_ppUsesBlock_token1]; ACTIONS 3 [sym__space];
   ACTIONS 5 [sym_ppDirective]; ACTIONS 3 [sym_comment]; ACTIONS 5797 [sym_identifier];
   ACTIONS 5804 [sym_kDefault; sym_kNodefault]; ACTIONS 5807 [sym_kDispId];
   ACTIONS 5797 [sym_kGeneric; sym_kOperator; sym_kPublished]; ACTIONS 5810 [sym_kPublic];
   ACTIONS 5797 [sym_kProtected; sym_kPrivate; sym_kStrict; sym_kRequired; sym_kOptional];
   ACTIONS 5804 [sym_kStatic; sym_kVirtual; sym_kAbstract; sym_kDynamic; sym_kOverride;
   sym_kOverload; sym_kReintroduce; sym_kStdcall; sym_kCdecl; sym_kCppdecl; sym_kPascal;
   sym_kRegister; sym_kMwpascal]; ACTIONS 11857 [sym_kExternal]; ACTIONS 5813 [sym_kMessage];
   ACTIONS 5816 [sym_kDeprecated]; ACTIONS 5804 [sym_kExperimental; sym_kPlatform;
   sym_kUnimplemented; sym_kCvar]; ACTIONS 5819 [sym_kExport]; ACTIONS 5804 [sym_kFar; sym_kNear;
   sym_kSafecall; sym_kAssembler; sym_kNostackframe; sym_kInterrupt; sym_kNoreturn; sym_kIocheck;
   sym_kLocal; sym_kHardfloat; sym_kSoftfloat; sym_kMs_abi_default; sym_kMs_abi_cdecl;
   sym_kSaveregisters; sym_kSysv_abi_default; sym_kSysv_abi_cdecl; sym_kVectorcall; sym_kVarargs;
   sym_kWinapi]; ACTIONS 5822 [sym_kAlias]; ACTIONS 5797 [sym_kCase; sym_kClass; sym_kConst;
   sym_kConstructor; sym_kDestructor; sym_kEnd; sym_kFunction]; ACTIONS 1016 [sym_kInline];
   ACTIONS 5797 [sym_kProcedure; sym_kProperty; sym_kResourcestring; sym_kThreadvar; sym_kType;
   sym_kVar]].

(** State 1670. *)
Definition ts_parse_table_1670 : parse_row :=
  [STATE 2251 [sym__procAttribute]; STATE 15882 [sym_procAttribute];
   STATE 1649 [sym_procExternal; aux_sym_declVar_repeat2]; ACTIONS 12256 [anon_sym_LBRACK];
   ACTIONS 3883 [aux_sym_ppUsesBlock_token1]; ACTIONS 3 [sym__space];
   ACTIONS 5 [sym_ppDirective]; ACTIONS 3 [sym_comment]; ACTIONS 3883 [sym_identifier];
   ACTIONS 3890 [sym_kDefault; sym_kNodefault]; ACTIONS 3893 [sym_kDispId];
   ACTIONS 3883 [sym_kGeneric; sym_kOperator; sym_kPublished]; ACTIONS 3896 [sym_kPublic];
   ACTIONS 3883 [sym_kProtected; sym_kPrivate; sym_kStrict; sym_kRequired; sym_kOptional];
   ACTIONS 3890 [sym_kStatic; sym_kVirtual; sym_kAbstract; sym_kDynamic; sym_kOverride;
   sym_kOverload; sym_kReintroduce; sym_kStdcall; sym_kCdecl; sym_kCppdecl; sym_kPascal;
   sym_kRegister; sym_kMwpascal]; ACTIONS 11857 [sym_kExternal]; ACTIONS 3899 [sym_kMessage];
   ACTIONS 3902 [sym_kDeprecated]; ACTIONS 3890 [sym_kExperimental; sym_kPlatform;
   sym_kUnimplemented; sym_kCvar]; ACTIONS 3905 [sym_kExport]; ACTIONS 3890 [sym_kFar; sym_kNear;
   sym_kSafecall; sym_kAssembler; sym_kNostackframe; sym_kInterrupt; sym_kNoreturn; sym_kIocheck;
   sym_kLocal; sym_kHardfloat; sym_kSoftfloat; sym_kMs_abi_default; sym_kMs_abi_cdecl;
   sym_kSaveregisters; sym_kSysv_abi_default; sym_kSysv_abi_cdecl; sym_kVectorcall; sym_kVarargs;
   sym_kWinapi]; ACTIONS 3908 [sym_kAlias]; ACTIONS 3883 [sym_kCase; sym_kClass; sym_kConst;
   sym_kConstructor; sym_kDestructor; sym_kEnd; sym_kFunction]; ACTIONS 1016 [sym_kInline];
   ACTIONS 3883 [sym_kProcedure; sym_kProperty; sym_kResourcestring; sym_kThreadvar; sym_kType;
   sym_kVar]].

(** State 1671. *)
Definition ts_parse_table_1671 : parse_row :=
  [STATE 2251 [sym__procAttribute]; STATE 15882 [sym_procAttribute];
   STATE 1649 [sym_procExternal; aux_sym_declVar_repeat2]; ACTIONS 12259 [anon_sym_LBRACK];
   ACTIONS 3942 [aux_sym_ppUsesBlock_token1]; ACTIONS 3 [sym__space];
   ACTIONS 5 [sym_ppDirective]; ACTIONS 3 [sym_comment]; ACTIONS 3942 [sym_identifier];
   ACTIONS 3949 [sym_kDefault; sym_kNodefault]; ACTIONS 3952 [sym_kDispId];
   ACTIONS 3942 [sym_kGeneric; sym_kOperator; sym_kPublished]; ACTIONS 3955 [sym_kPublic];
   ACTIONS 3942 [sym_kProtected; sym_kPrivate; sym_kStrict; sym_kRequired; sym_kOptional];
   ACTIONS 3949 [sym_kStatic; sym_kVirtual; sym_kAbstract; sym_kDynamic; sym_kOverride;
   sym_kOverload; sym_kReintroduce; sym_kStdcall; sym_kCdecl; sym_kCppdecl; sym_kPascal;
   sym_kRegister; sym_kMwpascal]; ACTIONS 11857 [sym_kExternal]; ACTIONS 3958 [sym_kMessage];
   ACTIONS 3961 [sym_kDeprecated]; ACTIONS 3949 [sym_kExperimental; sym_kPlatform;
   sym_kUnimplemented; sym_kCvar]; ACTIONS 3964 [sym_kExport]; ACTIONS 3949 [sym_kFar; sym_kNear;
   sym_kSafecall; sym_kAssembler; sym_kNostackframe; sym_kInterrupt; sym_kNoreturn; sym_kIocheck;
   sym_kLocal; sym_kHardfloat; sym_kSoftfloat; sym_kMs_abi_default; sym_kMs_abi_cdecl;
   sym_kSaveregisters; sym_kSysv_abi_default; sym_kSysv_abi_cdecl; sym_kVectorcall; sym_kVarargs;
   sym_kWinapi]; ACTIONS 3967 [sym_kAlias]; ACTIONS 3942 [sym_kCase; sym_kClass; sym_kConst;
   sym_kConstructor; sym_kDestructor; sym_kEnd; sym_kFunction]; ACTIONS 1016 [sym_kInline];
   ACTIONS 3942 [sym_kProcedure; sym_kProperty; sym_kResourcestring; sym_kThreadvar; sym_kType;
   sym_kVar]].

(** State 1672. *)
Definition ts_parse_table_1672 : parse_row :=
  [STATE 2189 [sym__procAttribute]; STATE 14259 [sym_procAttribute];
   STATE 1609 [sym_procExternal; aux_sym_declVar_repeat2]; ACTIONS 12262 [anon_sym_LBRACK];
   ACTIONS 5722 [aux_sym_ppUsesBlock_token1]; ACTIONS 3 [sym__space];
   ACTIONS 5 [sym_ppDirective]; ACTIONS 3 [sym_comment]; ACTIONS 5722 [sym_identifier];
   ACTIONS 5729 [sym_kDefault; sym_kNodefault]; ACTIONS 5732 [sym_kDispId];
   ACTIONS 5722 [sym_kGeneric; sym_kOperator]; ACTIONS 5735 [sym_kPublic];
   ACTIONS 5729 [sym_kStatic; sym_kVirtual; sym_kAbstract; sym_kDynamic; sym_kOverride;
   sym_kOverload; sym_kReintroduce; sym_kStdcall; sym_kCdecl; sym_kCppdecl; sym_kPascal;
   sym_kRegister; sym_kMwpascal]; ACTIONS 11924 [sym_kExternal]; ACTIONS 5738 [sym_kMessage];
   ACTIONS 5741 [sym_kDeprecated]; ACTIONS 5729 [sym_kExperimental; sym_kPlatform;
   sym_kUnimplemented; sym_kCvar]; ACTIONS 5744 [sym_kExport]; ACTIONS 5729 [sym_kFar; sym_kNear;
   sym_kSafecall; sym_kAssembler; sym_kNostackframe; sym_kInterrupt; sym_kNoreturn; sym_kIocheck;
   sym_kLocal; sym_kHardfloat; sym_kSoftfloat; sym_kMs_abi_default; sym_kMs_abi_cdecl;
   sym_kSaveregisters; sym_kSysv_abi_default; sym_kSysv_abi_cdecl; sym_kVectorcall; sym_kVarargs;
   sym_kWinapi]; ACTIONS 5747 [sym_kAlias]; ACTIONS 5722 [sym_kBegin; sym_kClass; sym_kConst;
   sym_kConstructor; sym_kDestructor; sym_kEnd; sym_kExports; sym_kFinalization; sym_kFunction;
   sym_kImplementation; sym_kInitialization]; ACTIONS 1016 [sym_kInline];
   ACTIONS 5722 [sym_kInterface; sym_kLabel; sym_kProcedure; sym_kResourcestring; sym_kThreadvar;
   sym_kType; sym_kUses; sym_kVar]].

(** State 1673. *)
Definition ts_parse_table_1673 : parse_row :=
  [STATE 2251 [sym__procAttribute]; STATE 15882 [sym_procAttribute];
   STATE 1598 [sym_procExternal; aux_sym_declVar_repeat2]; ACTIONS 12265 [anon_sym_LBRACK];
   ACTIONS 3970 [aux_sym_ppUsesBlock_token1]; ACTIONS 3 [sym__space];
   ACTIONS 5 [sym_ppDirective]; ACTIONS 3 [sym_comment]; ACTIONS 3970 [sym_identifier];
   ACTIONS 3977 [sym_kDefault; sym_kNodefault]; ACTIONS 3980 [sym_kDispId];
   ACTIONS 3970 [sym_kGeneric; sym_kOperator; sym_kPublished]; ACTIONS 3983 [sym_kPublic];
   ACTIONS 3970 [sym_kProtected; sym_kPrivate; sym_kStrict; sym_kRequired; sym_kOptional];
   ACTIONS 3977 [sym_kStatic; sym_kVirtual; sym_kAbstract; sym_kDynamic; sym_kOverride;
   sym_kOverload; sym_kReintroduce; sym_kStdcall; sym_kCdecl; sym_kCppdecl; sym_kPascal;
   sym_kRegister; sym_kMwpascal]; ACTIONS 11857 [sym_kExternal]; ACTIONS 3986 [sym_kMessage];
   ACTIONS 3989 [sym_kDeprecated]; ACTIONS 3977 [sym_kExperimental; sym_kPlatform;
   sym_kUnimplemented; sym_kCvar]; ACTIONS 3992 [sym_kExport]; ACTIONS 3977 [sym_kFar; sym_kNear;
   sym_kSafecall; sym_kAssembler; sym_kNostackframe; sym_kInterrupt; sym_kNoreturn; sym_kIocheck;
   sym_kLocal; sym_kHardfloat; sym_kSoftfloat; sym_kMs_abi_default; sym_kMs_abi_cdecl;
   sym_kSaveregisters; sym_kSysv_abi_default; sym_kSysv_abi_cdecl; sym_kVectorcall; sym_kVarargs;
   sym_kWinapi]; ACTIONS 3995 [sym_kAlias]; ACTIONS 3970 [sym_kCase; sym_kClass; sym_kConst;
   sym_kConstructor; sym_kDestructor; sym_kEnd; sym_kFunction]; ACTIONS 1016 [sym_kInline];
   ACTIONS 3970 [sym_kProcedure; sym_kProperty; sym_kResourcestring; sym_kThreadvar; sym_kType;
   sym_kVar]].

(** State 1674. *)
Definition ts_parse_table_1674 : parse_row :=
  [STATE 2251 [sym__procAttribute]; STATE 15882 [sym_procAttribute];
   STATE 1649 [sym_procExternal; aux_sym_declVar_repeat2]; ACTIONS 12268 [anon_sym_LBRACK];
   ACTIONS 4057 [aux_sym_ppUsesBlock_token1]; ACTIONS 3 [sym__space];
   ACTIONS 5 [sym_ppDirective]; ACTIONS 3 [sym_comment]; ACTIONS 4057 [sym_identifier];
   ACTIONS 4064 [sym_kDefault; sym_kNodefault]; ACTIONS 4067 [sym_kDispId];
   ACTIONS 4057 [sym_kGeneric; sym_kOperator; sym_kPublished]; ACTIONS 4070 [sym_kPublic];
   ACTIONS 4057 [sym_kProtected; sym_kPrivate; sym_kStrict; sym_kRequired; sym_kOptional];
   ACTIONS 4064 [sym_kStatic; sym_kVirtual; sym_kAbstract; sym_kDynamic; sym_kOverride;
   sym_kOverload; sym_kReintroduce; sym_kStdcall; sym_kCdecl; sym_kCppdecl; sym_kPascal;
   sym_kRegister; sym_kMwpascal]; ACTIONS 11857 [sym_kExternal]; ACTIONS 4073 [sym_kMessage];
   ACTIONS 4076 [sym_kDeprecated]; ACTIONS 4064 [sym_kExperimental; sym_kPlatform;
   sym_kUnimplemented; sym_kCvar]; ACTIONS 4079 [sym_kExport]; ACTIONS 4064 [sym_kFar; sym_kNear;
   sym_kSafecall; sym_kAssembler; sym_kNostackframe; sym_kInterrupt; sym_kNoreturn; sym_kIocheck;
   sym_kLocal; sym_kHardfloat; sym_kSoftfloat; sym_kMs_abi_default; sym_kMs_abi_cdecl;
   sym_kSaveregisters; sym_kSysv_abi_default; sym_kSysv_abi_cdecl; sym_kVectorcall; sym_kVarargs;
   sym_kWinapi]; ACTIONS 4082 [sym_kAlias]; ACTIONS 4057 [sym_kCase; sym_kClass; sym_kConst;
   sym_kConstructor; sym_kDestructor; sym_kEnd; sym_kFunction]; ACTIONS 1016 [sym_kInline];
   ACTIONS 4057 [sym_kProcedure; sym_kProperty; sym_kResourcestring; sym_kThreadvar; sym_kType;
   sym_kVar]].

(** State 1675. *)
Definition ts_parse_table_1675 : parse_row :=
  [STATE 2251 [sym__procAttribute]; STATE 15882 [sym_procAttribute];
   STATE 1562 [sym_procExternal; aux_sym_declVar_repeat2]; ACTIONS 12271 [anon_sym_LBRACK];
   ACTIONS 4178 [aux_sym_ppUsesBlock_token1]; ACTIONS 3 [sym__space];
   ACTIONS 5 [sym_ppDirective]; ACTIONS 3 [sym_comment]; ACTIONS 4178 [sym_identifier];
   ACTIONS 4185 [sym_kDefault; sym_kNodefault]; ACTIONS 4188 [sym_kDispId];
   ACTIONS 4178 [sym_kGeneric; sym_kOperator; sym_kPublished]; ACTIONS 4191 [sym_kPublic];
   ACTIONS 4178 [sym_kProtected; sym_kPrivate; sym_kStrict; sym_kRequired; sym_kOptional];
   ACTIONS 4185 [sym_kStatic; sym_kVirtual; sym_kAbstract; sym_kDynamic; sym_kOverride;
   sym_kOverload; sym_kReintroduce; sym_kStdcall; sym_kCdecl; sym_kCppdecl; sym_kPascal;
   sym_kRegister; sym_kMwpascal]; ACTIONS 11857 [sym_kExternal]; ACTIONS 4194 [sym_kMessage];
   ACTIONS 4197 [sym_kDeprecated]; ACTIONS 4185 [sym_kExperimental; sym_kPlatform;
   sym_kUnimplemented; sym_kCvar]; ACTIONS 4200 [sym_kExport]; ACTIONS 4185 [sym_kFar; sym_kNear;
   sym_kSafecall; sym_kAssembler; sym_kNostackframe; sym_kInterrupt; sym_kNoreturn; sym_kIocheck;
   sym_kLocal; sym_kHardfloat; sym_kSoftfloat; sym_kMs_abi_default; sym_kMs_abi_cdecl;
   sym_kSaveregisters; sym_kSysv_abi_default; sym_kSysv_abi_cdecl; sym_kVectorcall; sym_kVarargs;
   sym_kWinapi]; ACTIONS 4203 [sym_kAlias]; ACTIONS 4178 [sym_kCase; sym_kClass; sym_kConst;
   sym_kConstructor; sym_kDestructor; sym_kEnd; sym_kFunction]; ACTIONS 1016 [sym_kInline];
   ACTIONS 4178 [sym_kProcedure; sym_kProperty; sym_kResourcestring; sym_kThreadvar; sym_kType;
   sym_kVar]].

(** State 1676. *)
Definition ts_parse_table_1676 : parse_row :=
  [STATE 2251 [sym__procAttribute]; STATE 15882 [sym_procAttribute];
   STATE 1649 [sym_procExternal; aux_sym_declVar_repeat2]; ACTIONS 12274 [anon_sym_LBRACK];
   ACTIONS 4237 [aux_sym_ppUsesBlock_token1]; ACTIONS 3 [sym__space];
   ACTIONS 5 [sym_ppDirective]; ACTIONS 3 [sym_comment]; ACTIONS 4237 [sym_identifier];
   ACTIONS 4244 [sym_kDefault; sym_kNodefault]; ACTIONS 4247 [sym_kDispId];
   ACTIONS 4237 [sym_kGeneric; sym_kOperator; sym_kPublished]; ACTIONS 4250 [sym_kPublic];
   ACTIONS 4237 [sym_kProtected; sym_kPrivate; sym_kStrict; sym_kRequired; sym_kOptional];
   ACTIONS 4244 [sym_kStatic; sym_kVirtual; sym_kAbstract; sym_kDynamic; sym_kOverride;
   sym_kOverload; sym_kReintroduce; sym_kStdcall; sym_kCdecl; sym_kCppdecl; sym_kPascal;
   sym_kRegister; sym_kMwpascal]; ACTIONS 11857 [sym_kExternal]; ACTIONS 4253 [sym_kMessage];
   ACTIONS 4256 [sym_kDeprecated]; ACTIONS 4244 [sym_kExperimental; sym_kPlatform;
   sym_kUnimplemented; sym_kCvar]; ACTIONS 4259 [sym_kExport]; ACTIONS 4244 [sym_kFar; sym_kNear;
   sym_kSafecall; sym_kAssembler; sym_kNostackframe; sym_kInterrupt; sym_kNoreturn; sym_kIocheck;
   sym_kLocal; sym_kHardfloat; sym_kSoftfloat; sym_kMs_abi_default; sym_kMs_abi_cdecl;
   sym_kSaveregisters; sym_kSysv_abi_default; sym_kSysv_abi_cdecl; sym_kVectorcall; sym_kVarargs;
   sym_kWinapi]; ACTIONS 4262 [sym_kAlias]; ACTIONS 4237 [sym_kCase; sym_kClass; sym_kConst;
   sym_kConstructor; sym_kDestructor; sym_kEnd; sym_kFunction]; ACTIONS 1016 [sym_kInline];
   ACTIONS 4237 [sym_kProcedure; sym_kProperty; sym_kResourcestring; sym_kThreadvar; sym_kType;
   sym_kVar]].

(** State 1677. *)
Definition ts_parse_table_1677 : parse_row :=
  [STATE 2189 [sym__procAttribute]; STATE 14259 [sym_procAttribute];
   STATE 1609 [sym_procExternal; aux_sym_declVar_repeat2]; ACTIONS 12277 [anon_sym_LBRACK];
   ACTIONS 7356 [aux_sym_ppUsesBlock_token1]; ACTIONS 3 [sym__space];
   ACTIONS 5 [sym_ppDirective]; ACTIONS 3 [sym_comment]; ACTIONS 7356 [sym_identifier];
   ACTIONS 7363 [sym_kDefault; sym_kNodefault]; ACTIONS 7366 [sym_kDispId];
   ACTIONS 7356 [sym_kGeneric; sym_kOperator]; ACTIONS 7369 [sym_kPublic];
   ACTIONS 7363 [sym_kStatic; sym_kVirtual; sym_kAbstract; sym_kDynamic; sym_kOverride;
   sym_kOverload; sym_kReintroduce; sym_kStdcall; sym_kCdecl; sym_kCppdecl; sym_kPascal;
   sym_kRegister; sym_kMwpascal]; ACTIONS 11924 [sym_kExternal]; ACTIONS 7372 [sym_kMessage];
   ACTIONS 7375 [sym_kDeprecated]; ACTIONS 7363 [sym_kExperimental; sym_kPlatform;
   sym_kUnimplemented; sym_kCvar]; ACTIONS 7378 [sym_kExport]; ACTIONS 7363 [sym_kFar; sym_kNear;
   sym_kSafecall; sym_kAssembler; sym_kNostackframe; sym_kInterrupt; sym_kNoreturn; sym_kIocheck;
   sym_kLocal; sym_kHardfloat; sym_kSoftfloat; sym_kMs_abi_default; sym_kMs_abi_cdecl;
   sym_kSaveregisters; sym_kSysv_abi_default; sym_kSysv_abi_cdecl; sym_kVectorcall; sym_kVarargs;
   sym_kWinapi]; ACTIONS 7381 [sym_kAlias]; ACTIONS 7356 [sym_kBegin; sym_kClass; sym_kConst;
   sym_kConstructor; sym_kDestructor; sym_kEnd; sym_kExports; sym_kFinalization; sym_kFunction;
   sym_kImplementation; sym_kInitialization]; ACTIONS 1016 [sym_kInline];
   ACTIONS 7356 [sym_kInterface; sym_kLabel; sym_kProcedure; sym_kResourcestring; sym_kThreadvar;
   sym_kType; sym_kUses; sym_kVar]].

(** State 1678. *)
Definition ts_parse_table_1678 : parse_row :=
  [STATE 2251 [sym__procAttribute]; STATE 15882 [sym_procAttribute];
   STATE 1649 [sym_procExternal; aux_sym_declVar_repeat2]; ACTIONS 12280 [anon_sym_LBRACK];
   ACTIONS 4447 [aux_sym_ppUsesBlock_token1]; ACTIONS 3 [sym__space];
   ACTIONS 5 [sym_ppDirective]; ACTIONS 3 [sym_comment]; ACTIONS 4447 [sym_identifier];
   ACTIONS 4454 [sym_kDefault; sym_kNodefault]; ACTIONS 4457 [sym_kDispId];
   ACTIONS 4447 [sym_kGeneric; sym_kOperator; sym_kPublished]; ACTIONS 4460 [sym_kPublic];
   ACTIONS 4447 [sym_kProtected; sym_kPrivate; sym_kStrict; sym_kRequired; sym_kOptional];
   ACTIONS 4454 [sym_kStatic; sym_kVirtual; sym_kAbstract; sym_kDynamic; sym_kOverride;
   sym_kOverload; sym_kReintroduce; sym_kStdcall; sym_kCdecl; sym_kCppdecl; sym_kPascal;
   sym_kRegister; sym_kMwpascal]; ACTIONS 11857 [sym_kExternal]; ACTIONS 4463 [sym_kMessage];
   ACTIONS 4466 [sym_kDeprecated]; ACTIONS 4454 [sym_kExperimental; sym_kPlatform;
   sym_kUnimplemented; sym_kCvar]; ACTIONS 4469 [sym_kExport]; ACTIONS 4454 [sym_kFar; sym_kNear;
   sym_kSafecall; sym_kAssembler; sym_kNostackframe; sym_kInterrupt; sym_kNoreturn; sym_kIocheck;
   sym_kLocal; sym_kHardfloat; sym_kSoftfloat; sym_kMs_abi_default; sym_kMs_abi_cdecl;
   sym_kSaveregisters; sym_kSysv_abi_default; sym_kSysv_abi_cdecl; sym_kVectorcall; sym_kVarargs;
   sym_kWinapi]; ACTIONS 4472 [sym_kAlias]; ACTIONS 4447 [sym_kCase; sym_kClass; sym_kConst;
   sym_kConstructor; sym_kDestructor; sym_kEnd; sym_kFunction]; ACTIONS 1016 [sym_kInline];
   ACTIONS 4447 [sym_kProcedure; sym_kProperty; sym_kResourcestring; sym_kThreadvar; sym_kType;
   sym_kVar]].

(** State 1679. *)
Definition ts_parse_table_1679 : parse_row :=
  [STATE 2251 [sym__procAttribute]; STATE 15882 [sym_procAttribute];
   STATE 1577 [sym_procExternal; aux_sym_declVar_repeat2]; ACTIONS 12283 [anon_sym_LBRACK];
   ACTIONS 4879 [aux_sym_ppUsesBlock_token1]; ACTIONS 3 [sym__space];
   ACTIONS 5 [sym_ppDirective]; ACTIONS 3 [sym_comment]; ACTIONS 4879 [sym_identifier];
   ACTIONS 4886 [sym_kDefault; sym_kNodefault]; ACTIONS 4889 [sym_kDispId];
   ACTIONS 4879 [sym_kGeneric; sym_kOperator; sym_kPublished]; ACTIONS 4892 [sym_kPublic];
   ACTIONS 4879 [sym_kProtected; sym_kPrivate; sym_kStrict; sym_kRequired; sym_kOptional];
   ACTIONS 4886 [sym_kStatic; sym_kVirtual; sym_kAbstract; sym_kDynamic; sym_kOverride;
   sym_kOverload; sym_kReintroduce; sym_kStdcall; sym_kCdecl; sym_kCppdecl; sym_kPascal;
   sym_kRegister; sym_kMwpascal]; ACTIONS 11857 [sym_kExternal]; ACTIONS 4895 [sym_kMessage];
   ACTIONS 4898 [sym_kDeprecated]; ACTIONS 4886 [sym_kExperimental; sym_kPlatform;
   sym_kUnimplemented; sym_kCvar]; ACTIONS 4901 [sym_kExport]; ACTIONS 4886 [sym_kFar; sym_kNear;
   sym_kSafecall; sym_kAssembler; sym_kNostackframe; sym_kInterrupt; sym_kNoreturn; sym_kIocheck;
   sym_kLocal; sym_kHardfloat; sym_kSoftfloat; sym_kMs_abi_default; sym_kMs_abi_cdecl;
   sym_kSaveregisters; sym_kSysv_abi_default; sym_kSysv_abi_cdecl; sym_kVectorcall; sym_kVarargs;
   sym_kWinapi]; ACTIONS 4904 [sym_kAlias]; ACTIONS 4879 [sym_kCase; sym_kClass; sym_kConst;
   sym_kConstructor; sym_kDestructor; sym_kEnd; sym_kFunction]; ACTIONS 1016 [sym_kInline];
   ACTIONS 4879 [sym_kProcedure; sym_kProperty; sym_kResourcestring; sym_kThreadvar; sym_kType;
   sym_kVar]].

(** State 1680. *)
Definition ts_parse_table_1680 : parse_row :=
  [STATE 2251 [sym__procAttribute]; STATE 15882 [sym_procAttribute];
   STATE 1649 [sym_procExternal; aux_sym_declVar_repeat2]; ACTIONS 12286 [anon_sym_LBRACK];
   ACTIONS 4969 [aux_sym_ppUsesBlock_token1]; ACTIONS 3 [sym__space];
   ACTIONS 5 [sym_ppDirective]; ACTIONS 3 [sym_comment]; ACTIONS 4969 [sym_identifier];
   ACTIONS 4976 [sym_kDefault; sym_kNodefault]; ACTIONS 4979 [sym_kDispId];
   ACTIONS 4969 [sym_kGeneric; sym_kOperator; sym_kPublished]; ACTIONS 4982 [sym_kPublic];
   ACTIONS 4969 [sym_kProtected; sym_kPrivate; sym_kStrict; sym_kRequired; sym_kOptional];
   ACTIONS 4976 [sym_kStatic; sym_kVirtual; sym_kAbstract; sym_kDynamic; sym_kOverride;
   sym_kOverload; sym_kReintroduce; sym_kStdcall; sym_kCdecl; sym_kCppdecl; sym_kPascal;
   sym_kRegister; sym_kMwpascal]; ACTIONS 11857 [sym_kExternal]; ACTIONS 4985 [sym_kMessage];
   ACTIONS 4988 [sym_kDeprecated]; ACTIONS 4976 [sym_kExperimental; sym_kPlatform;
   sym_kUnimplemented; sym_kCvar]; ACTIONS 4991 [sym_kExport]; ACTIONS 4976 [sym_kFar; sym_kNear;
   sym_kSafecall; sym_kAssembler; sym_kNostackframe; sym_kInterrupt; sym_kNoreturn; sym_kIocheck;
   sym_kLocal; sym_kHardfloat; sym_kSoftfloat; sym_kMs_abi_default; sym_kMs_abi_cdecl;
   sym_kSaveregisters; sym_kSysv_abi_default; sym_kSysv_abi_cdecl; sym_kVectorcall; sym_kVarargs;
   sym_kWinapi]; ACTIONS 4994 [sym_kAlias]; ACTIONS 4969 [sym_kCase; sym_kClass; sym_kConst;
   sym_kConstructor; sym_kDestructor; sym_kEnd; sym_kFunction]; ACTIONS 1016 [sym_kInline];
   ACTIONS 4969 [sym_kProcedure; sym_kProperty; sym_kResourcestring; sym_kThreadvar; sym_kType;
   sym_kVar]].

(** State 1681. *)
Definition ts_parse_table_1681 : parse_row :=
  [STATE 2251 [sym__procAttribute]; STATE 15882 [sym_procAttribute];
   STATE 1579 [sym_procExternal; aux_sym_declVar_repeat2]; ACTIONS 12289 [anon_sym_LBRACK];
   ACTIONS 5221 [aux_sym_ppUsesBlock_token1]; ACTIONS 3 [sym__space];
   ACTIONS 5 [sym_ppDirective]; ACTIONS 3 [sym_comment]; ACTIONS 5221 [sym_identifier];
   ACTIONS 5228 [sym_kDefault; sym_kNodefault]; ACTIONS 5231 [sym_kDispId];
   ACTIONS 5221 [sym_kGeneric; sym_kOperator; sym_kPublished]; ACTIONS 5234 [sym_kPublic];
   ACTIONS 5221 [sym_kProtected; sym_kPrivate; sym_kStrict; sym_kRequired; sym_kOptional];
   ACTIONS 5228 [sym_kStatic; sym_kVirtual; sym_kAbstract; sym_kDynamic; sym_kOverride;
   sym_kOverload; sym_kReintroduce; sym_kStdcall; sym_kCdecl; sym_kCppdecl; sym_kPascal;
   sym_kRegister; sym_kMwpascal]; ACTIONS 11857 [sym_kExternal]; ACTIONS 5237 [sym_kMessage];
   ACTIONS 5240 [sym_kDeprecated]; ACTIONS 5228 [sym_kExperimental; sym_kPlatform;
   sym_kUnimplemented; sym_kCvar]; ACTIONS 5243 [sym_kExport]; ACTIONS 5228 [sym_kFar; sym_kNear;
   sym_kSafecall; sym_kAssembler; sym_kNostackframe; sym_kInterrupt; sym_kNoreturn; sym_kIocheck;
   sym_kLocal; sym_kHardfloat; sym_kSoftfloat; sym_kMs_abi_default; sym_kMs_abi_cdecl;
   sym_kSaveregisters; sym_kSysv_abi_default; sym_kSysv_abi_cdecl; sym_kVectorcall; sym_kVarargs;
   sym_kWinapi]; ACTIONS 5246 [sym_kAlias]; ACTIONS 5221 [sym_kCase; sym_kClass; sym_kConst;
   sym_kConstructor; sym_kDestructor; sym_kEnd; sym_kFunction]; ACTIONS 1016 [sym_kInline];
   ACTIONS 5221 [sym_kProcedure; sym_kProperty; sym_kResourcestring; sym_kThreadvar; sym_kType;
   sym_kVar]].

(** State 1682. *)
Definition ts_parse_table_1682 : parse_row :=
  [STATE 2251 [sym__procAttribute]; STATE 15882 [sym_procAttribute];
   STATE 1553 [sym_procExternal; aux_sym_declVar_repeat2]; ACTIONS 12292 [anon_sym_LBRACK];
   ACTIONS 5308 [aux_sym_ppUsesBlock_token1]; ACTIONS 3 [sym__space];
   ACTIONS 5 [sym_ppDirective]; ACTIONS 3 [sym_comment]; ACTIONS 5308 [sym_identifier];
   ACTIONS 5315 [sym_kDefault; sym_kNodefault]; ACTIONS 5318 [sym_kDispId];
   ACTIONS 5308 [sym_kGeneric; sym_kOperator; sym_kPublished]; ACTIONS 5321 [sym_kPublic];
   ACTIONS 5308 [sym_kProtected; sym_kPrivate; sym_kStrict; sym_kRequired; sym_kOptional];
   ACTIONS 5315 [sym_kStatic; sym_kVirtual; sym_kAbstract; sym_kDynamic; sym_kOverride;
   sym_kOverload; sym_kReintroduce; sym_kStdcall; sym_kCdecl; sym_kCppdecl; sym_kPascal;
   sym_kRegister; sym_kMwpascal]; ACTIONS 11857 [sym_kExternal]; ACTIONS 5324 [sym_kMessage];
   ACTIONS 5327 [sym_kDeprecated]; ACTIONS 5315 [sym_kExperimental; sym_kPlatform;
   sym_kUnimplemented; sym_kCvar]; ACTIONS 5330 [sym_kExport]; ACTIONS 5315 [sym_kFar; sym_kNear;
   sym_kSafecall; sym_kAssembler; sym_kNostackframe; sym_kInterrupt; sym_kNoreturn; sym_kIocheck;
   sym_kLocal; sym_kHardfloat; sym_kSoftfloat; sym_kMs_abi_default; sym_kMs_abi_cdecl;
   sym_kSaveregisters; sym_kSysv_abi_default; sym_kSysv_abi_cdecl; sym_kVectorcall; sym_kVarargs;
   sym_kWinapi]; ACTIONS 5333 [sym_kAlias]; ACTIONS 5308 [sym_kCase; sym_kClass; sym_kConst;
   sym_kConstructor; sym_kDestructor; sym_kEnd; sym_kFunction]; ACTIONS 1016 [sym_kInline];
   ACTIONS 5308 [sym_kProcedure; sym_kProperty; sym_kResourcestring; sym_kThreadvar; sym_kType;
   sym_kVar]].

(** State 1683. *)
Definition ts_parse_table_1683 : parse_row :=
  [STATE 2265 [sym__procAttribute]; STATE 14480 [sym_procAttribute];
   STATE 1683 [sym_procExternal; aux_sym_declVar_repeat2]; ACTIONS 12295 [anon_sym_LBRACK];
   ACTIONS 6584 [aux_sym_ppUsesBlock_token1]; ACTIONS 3 [sym__space];
   ACTIONS 5 [sym_ppDirective]; ACTIONS 3 [sym_comment]; ACTIONS 6584 [sym_identifier];
   ACTIONS 6591 [sym_kDefault; sym_kNodefault]; ACTIONS 6594 [sym_kDispId];
   ACTIONS 6584 [sym_kGeneric; sym_kOperator]; ACTIONS 6597 [sym_kPublic];
   ACTIONS 6591 [sym_kStatic; sym_kVirtual; sym_kAbstract; sym_kDynamic; sym_kOverride;
   sym_kOverload; sym_kReintroduce; sym_kStdcall; sym_kCdecl; sym_kCppdecl; sym_kPascal;
   sym_kRegister; sym_kMwpascal]; ACTIONS 12298 [sym_kExternal]; ACTIONS 6603 [sym_kMessage];
   ACTIONS 6606 [sym_kDeprecated]; ACTIONS 6591 [sym_kExperimental; sym_kPlatform;
   sym_kUnimplemented; sym_kCvar]; ACTIONS 6609 [sym_kExport]; ACTIONS 6591 [sym_kFar; sym_kNear;
   sym_kSafecall; sym_kAssembler; sym_kNostackframe; sym_kInterrupt; sym_kNoreturn; sym_kIocheck;
   sym_kLocal; sym_kHardfloat; sym_kSoftfloat; sym_kMs_abi_default; sym_kMs_abi_cdecl;
   sym_kSaveregisters; sym_kSysv_abi_default; sym_kSysv_abi_cdecl; sym_kVectorcall; sym_kVarargs;
   sym_kWinapi]; ACTIONS 6612 [sym_kAlias]; ACTIONS 6584 [sym_kClass; sym_kConst;
   sym_kConstructor; sym_kDestructor; sym_kEnd; sym_kExports; sym_kFinalization; sym_kFunction;
   sym_kImplementation; sym_kInitialization]; ACTIONS 6591 [sym_kInline];
   ACTIONS 6584 [sym_kInterface; sym_kLabel; sym_kProcedure; sym_kProperty; sym_kResourcestring;
   sym_kThreadvar; sym_kType; sym_kUses; sym_kVar]].

(** State 1684. *)
Definition ts_parse_table_1684 : parse_row :=
  [STATE 2251 [sym__procAttribute]; STATE 15882 [sym_procAttribute];
   STATE 1649 [sym_procExternal; aux_sym_declVar_repeat2]; ACTIONS 12301 [anon_sym_LBRACK];
   ACTIONS 5373 [aux_sym_ppUsesBlock_token1]; ACTIONS 3 [sym__space];
   ACTIONS 5 [sym_ppDirective]; ACTIONS 3 [sym_comment]; ACTIONS 5373 [sym_identifier];
   ACTIONS 5380 [sym_kDefault; sym_kNodefault]; ACTIONS 5383 [sym_kDispId];
   ACTIONS 5373 [sym_kGeneric; sym_kOperator; sym_kPublished]; ACTIONS 5386 [sym_kPublic];
   ACTIONS 5373 [sym_kProtected; sym_kPrivate; sym_kStrict; sym_kRequired; sym_kOptional];
   ACTIONS 5380 [sym_kStatic; sym_kVirtual; sym_kAbstract; sym_kDynamic; sym_kOverride;
   sym_kOverload; sym_kReintroduce; sym_kStdcall; sym_kCdecl; sym_kCppdecl; sym_kPascal;
   sym_kRegister; sym_kMwpascal]; ACTIONS 11857 [sym_kExternal]; ACTIONS 5389 [sym_kMessage];
   ACTIONS 5392 [sym_kDeprecated]; ACTIONS 5380 [sym_kExperimental; sym_kPlatform;
   sym_kUnimplemented; sym_kCvar]; ACTIONS 5395 [sym_kExport]; ACTIONS 5380 [sym_kFar; sym_kNear;
   sym_kSafecall; sym_kAssembler; sym_kNostackframe; sym_kInterrupt; sym_kNoreturn; sym_kIocheck;
   sym_kLocal; sym_kHardfloat; sym_kSoftfloat; sym_kMs_abi_default; sym_kMs_abi_cdecl;
   sym_kSaveregisters; sym_kSysv_abi_default; sym_kSysv_abi_cdecl; sym_kVectorcall; sym_kVarargs;
   sym_kWinapi]; ACTIONS 5398 [sym_kAlias]; ACTIONS 5373 [sym_kCase; sym_kClass; sym_kConst;
   sym_kConstructor; sym_kDestructor; sym_kEnd; sym_kFunction]; ACTIONS 1016 [sym_kInline];
   ACTIONS 5373 [sym_kProcedure; sym_kProperty; sym_kResourcestring; sym_kThreadvar; sym_kType;
   sym_kVar]].

(** State 1685. *)
Definition ts_parse_table_1685 : parse_row :=
  [STATE 2251 [sym__procAttribute]; STATE 15882 [sym_procAttribute];
   STATE 1554 [sym_procExternal; aux_sym_declVar_repeat2]; ACTIONS 12304 [anon_sym_LBRACK];
   ACTIONS 5598 [aux_sym_ppUsesBlock_token1]; ACTIONS 3 [sym__space];
   ACTIONS 5 [sym_ppDirective]; ACTIONS 3 [sym_comment]; ACTIONS 5598 [sym_identifier];
   ACTIONS 5605 [sym_kDefault; sym_kNodefault]; ACTIONS 5608 [sym_kDispId];
   ACTIONS 5598 [sym_kGeneric; sym_kOperator; sym_kPublished]; ACTIONS 5611 [sym_kPublic];
   ACTIONS 5598 [sym_kProtected; sym_kPrivate; sym_kStrict; sym_kRequired; sym_kOptional];
   ACTIONS 5605 [sym_kStatic; sym_kVirtual; sym_kAbstract; sym_kDynamic; sym_kOverride;
   sym_kOverload; sym_kReintroduce; sym_kStdcall; sym_kCdecl; sym_kCppdecl; sym_kPascal;
   sym_kRegister; sym_kMwpascal]; ACTIONS 11857 [sym_kExternal]; ACTIONS 5614 [sym_kMessage];
   ACTIONS 5617 [sym_kDeprecated]; ACTIONS 5605 [sym_kExperimental; sym_kPlatform;
   sym_kUnimplemented; sym_kCvar]; ACTIONS 5620 [sym_kExport]; ACTIONS 5605 [sym_kFar; sym_kNear;
   sym_kSafecall; sym_kAssembler; sym_kNostackframe; sym_kInterrupt; sym_kNoreturn; sym_kIocheck;
   sym_kLocal; sym_kHardfloat; sym_kSoftfloat; sym_kMs_abi_default; sym_kMs_abi_cdecl;
   sym_kSaveregisters; sym_kSysv_abi_default; sym_kSysv_abi_cdecl; sym_kVectorcall; sym_kVarargs;
   sym_kWinapi]; ACTIONS 5623 [sym_kAlias]; ACTIONS 5598 [sym_kCase; sym_kClass; sym_kConst;
   sym_kConstructor; sym_kDestructor; sym_kEnd; sym_kFunction]; ACTIONS 1016 [sym_kInline];
   ACTIONS 5598 [sym_kProcedure; sym_kProperty; sym_kResourcestring; sym_kThreadvar; sym_kType;
   sym_kVar]].

(** State 1686. *)
Definition ts_parse_table_1686 : parse_row :=
  [STATE 2189 [sym__procAttribute]; STATE 14259 [sym_procAttribute];
   STATE 1634 [sym_procExternal; aux_sym_declVar_repeat2]; ACTIONS 12307 [anon_sym_LBRACK];
   ACTIONS 6972 [aux_sym_ppUsesBlock_token1]; ACTIONS 3 [sym__space];
   ACTIONS 5 [sym_ppDirective]; ACTIONS 3 [sym_comment]; ACTIONS 6972 [sym_identifier];
   ACTIONS 6979 [sym_kDefault; sym_kNodefault]; ACTIONS 6982 [sym_kDispId];
   ACTIONS 6972 [sym_kGeneric; sym_kOperator]; ACTIONS 6985 [sym_kPublic];
   ACTIONS 6979 [sym_kStatic; sym_kVirtual; sym_kAbstract; sym_kDynamic; sym_kOverride;
   sym_kOverload; sym_kReintroduce; sym_kStdcall; sym_kCdecl; sym_kCppdecl; sym_kPascal;
   sym_kRegister; sym_kMwpascal]; ACTIONS 11924 [sym_kExternal]; ACTIONS 6988 [sym_kMessage];
   ACTIONS 6991 [sym_kDeprecated]; ACTIONS 6979 [sym_kExperimental; sym_kPlatform;
   sym_kUnimplemented; sym_kCvar]; ACTIONS 6994 [sym_kExport]; ACTIONS 6979 [sym_kFar; sym_kNear;
   sym_kSafecall; sym_kAssembler; sym_kNostackframe; sym_kInterrupt; sym_kNoreturn; sym_kIocheck;
   sym_kLocal; sym_kHardfloat; sym_kSoftfloat; sym_kMs_abi_default; sym_kMs_abi_cdecl;
   sym_kSaveregisters; sym_kSysv_abi_default; sym_kSysv_abi_cdecl; sym_kVectorcall; sym_kVarargs;
   sym_kWinapi]; ACTIONS 6997 [sym_kAlias]; ACTIONS 6972 [sym_kBegin; sym_kClass; sym_kConst;
   sym_kConstructor; sym_kDestructor; sym_kEnd; sym_kExports; sym_kFinalization; sym_kFunction;
   sym_kImplementation; sym_kInitialization]; ACTIONS 1016 [sym_kInline];
   ACTIONS 6972 [sym_kInterface; sym_kLabel; sym_kProcedure; sym_kResourcestring; sym_kThreadvar;
   sym_kType; sym_kUses; sym_kVar]].

(** State 1687. *)
Definition ts_parse_table_1687 : parse_row :=
  [STATE 2907 [sym__ppIf]; STATE 2561 [sym__procAttributeNoExt];
   STATE 2564 [sym__procAttributesPp]; STATE 15242 [sym_procAttribute];
   STATE 1759 [aux_sym__declProc_repeat1]; ACTIONS 12310 [anon_sym_LBRACK];
   ACTIONS 3008 [aux_sym_ppUsesBlock_token1]; ACTIONS 3 [sym__space];
   ACTIONS 5 [sym_ppDirective]; ACTIONS 3 [sym_comment]; ACTIONS 1016 [sym_kDefault;
   sym_kNodefault]; ACTIONS 11641 [sym_kDispId]; ACTIONS 3001 [sym_kGeneric; sym_kOperator];
   ACTIONS 11643 [sym_kPublic]; ACTIONS 1016 [sym_kStatic; sym_kVirtual; sym_kAbstract;
   sym_kDynamic; sym_kOverride; sym_kOverload; sym_kReintroduce; sym_kStdcall; sym_kCdecl;
   sym_kCppdecl; sym_kPascal; sym_kRegister; sym_kMwpascal]; ACTIONS 11645 [sym_kMessage];
   ACTIONS 11647 [sym_kDeprecated]; ACTIONS 1016 [sym_kExperimental; sym_kPlatform;
   sym_kUnimplemented; sym_kCvar]; ACTIONS 11649 [sym_kExport]; ACTIONS 1016 [sym_kFar;
   sym_kNear; sym_kSafecall; sym_kAssembler; sym_kNostackframe; sym_kInterrupt; sym_kNoreturn;
   sym_kIocheck; sym_kLocal; sym_kHardfloat; sym_kSoftfloat; sym_kMs_abi_default;
   sym_kMs_abi_cdecl; sym_kSaveregisters; sym_kSysv_abi_default; sym_kSysv_abi_cdecl;
   sym_kVectorcall; sym_kVarargs; sym_kWinapi]; ACTIONS 11651 [sym_kAlias];
   ACTIONS 3001 [sym_kClass; sym_kConst; sym_kConstructor; sym_kDestructor; sym_kEnd;
   sym_kExports; sym_kFinalization; sym_kFunction; sym_kImplementation; sym_kInitialization];
   ACTIONS 1016 [sym_kInline]; ACTIONS 3001 [sym_kInterface; sym_kLabel; sym_kProcedure;
   sym_kProperty; sym_kResourcestring; sym_kThreadvar; sym_kType; sym_kUses; sym_kVar]].

(** State 1688. *)
Definition ts_parse_table_1688 : parse_row :=
  [STATE 2875 [sym__ppIf]; STATE 2590 [sym__procAttributeNoExt];
   STATE 2591 [sym__procAttributesPp]; STATE 14895 [sym_procAttribute];
   STATE 1901 [aux_sym__declProc_repeat1]; ACTIONS 12313 [anon_sym_LBRACK];
   ACTIONS 2280 [aux_sym_ppUsesBlock_token1]; ACTIONS 3 [sym__space];
   ACTIONS 5 [sym_ppDirective]; ACTIONS 3 [sym_comment]; ACTIONS 1016 [sym_kDefault;
   sym_kNodefault]; ACTIONS 11641 [sym_kDispId]; ACTIONS 2273 [sym_kGeneric; sym_kOperator;
   sym_kPublished]; ACTIONS 2289 [sym_kPublic]; ACTIONS 2273 [sym_kProtected; sym_kPrivate;
   sym_kStrict; sym_kRequired; sym_kOptional]; ACTIONS 1016 [sym_kStatic; sym_kVirtual;
   sym_kAbstract; sym_kDynamic; sym_kOverride; sym_kOverload; sym_kReintroduce; sym_kStdcall;
   sym_kCdecl; sym_kCppdecl; sym_kPascal; sym_kRegister; sym_kMwpascal];
   ACTIONS 11645 [sym_kMessage]; ACTIONS 11647 [sym_kDeprecated];
   ACTIONS 1016 [sym_kExperimental; sym_kPlatform; sym_kUnimplemented; sym_kCvar];
   ACTIONS 11649 [sym_kExport]; ACTIONS 1016 [sym_kFar; sym_kNear; sym_kSafecall; sym_kAssembler;
   sym_kNostackframe; sym_kInterrupt; sym_kNoreturn; sym_kIocheck; sym_kLocal; sym_kHardfloat;
   sym_kSoftfloat; sym_kMs_abi_default; sym_kMs_abi_cdecl; sym_kSaveregisters;
   sym_kSysv_abi_default; sym_kSysv_abi_cdecl; sym_kVectorcall; sym_kVarargs; sym_kWinapi];
   ACTIONS 11651 [sym_kAlias]; ACTIONS 2273 [sym_kCase; sym_kClass; sym_kConst; sym_kConstructor;
   sym_kDestructor; sym_kEnd; sym_kFunction]; ACTIONS 1016 [sym_kInline];
   ACTIONS 2273 [sym_kProcedure; sym_kProperty; sym_kResourcestring; sym_kThreadvar; sym_kType;
   sym_kVar]].

(** State 1689. *)
Definition ts_parse_table_1689 : parse_row :=
  [STATE 2875 [sym__ppIf]; STATE 2590 [sym__procAttributeNoExt];
   STATE 2591 [sym__procAttributesPp]; STATE 14895 [sym_procAttribute];
   STATE 1700 [aux_sym__declProc_repeat1]; ACTIONS 12316 [anon_sym_LBRACK];
   ACTIONS 2325 [aux_sym_ppUsesBlock_token1]; ACTIONS 3 [sym__space];
   ACTIONS 5 [sym_ppDirective]; ACTIONS 3 [sym_comment]; ACTIONS 1016 [sym_kDefault;
   sym_kNodefault]; ACTIONS 11641 [sym_kDispId]; ACTIONS 2318 [sym_kGeneric; sym_kOperator;
   sym_kPublished]; ACTIONS 2334 [sym_kPublic]; ACTIONS 2318 [sym_kProtected; sym_kPrivate;
   sym_kStrict; sym_kRequired; sym_kOptional]; ACTIONS 1016 [sym_kStatic; sym_kVirtual;
   sym_kAbstract; sym_kDynamic; sym_kOverride; sym_kOverload; sym_kReintroduce; sym_kStdcall;
   sym_kCdecl; sym_kCppdecl; sym_kPascal; sym_kRegister; sym_kMwpascal];
   ACTIONS 11645 [sym_kMessage]; ACTIONS 11647 [sym_kDeprecated];
   ACTIONS 1016 [sym_kExperimental; sym_kPlatform; sym_kUnimplemented; sym_kCvar];
   ACTIONS 11649 [sym_kExport]; ACTIONS 1016 [sym_kFar; sym_kNear; sym_kSafecall; sym_kAssembler;
   sym_kNostackframe; sym_kInterrupt; sym_kNoreturn; sym_kIocheck; sym_kLocal; sym_kHardfloat;
   sym_kSoftfloat; sym_kMs_abi_default; sym_kMs_abi_cdecl; sym_kSaveregisters;
   sym_kSysv_abi_default; sym_kSysv_abi_cdecl; sym_kVectorcall; sym_kVarargs; sym_kWinapi];
   ACTIONS 11651 [sym_kAlias]; ACTIONS 2318 [sym_kCase; sym_kClass; sym_kConst; sym_kConstructor;
   sym_kDestructor; sym_kEnd; sym_kFunction]; ACTIONS 1016 [sym_kInline];
   ACTIONS 2318 [sym_kProcedure; sym_kProperty; sym_kResourcestring; sym_kThreadvar; sym_kType;
   sym_kVar]].

(** State 1690. *)
Definition ts_parse_table_1690 : parse_row :=
  [STATE 2875 [sym__ppIf]; STATE 2590 [sym__procAttributeNoExt];
   STATE 2591 [sym__procAttributesPp]; STATE 14895 [sym_procAttribute];
   STATE 1701 [aux_sym__declProc_repeat1]; ACTIONS 12319 [anon_sym_LBRACK];
   ACTIONS 2358 [aux_sym_ppUsesBlock_token1]; ACTIONS 3 [sym__space];
   ACTIONS 5 [sym_ppDirective]; ACTIONS 3 [sym_comment]; ACTIONS 1016 [sym_kDefault;
   sym_kNodefault]; ACTIONS 11641 [sym_kDispId]; ACTIONS 2351 [sym_kGeneric; sym_kOperator;
   sym_kPublished]; ACTIONS 2367 [sym_kPublic]; ACTIONS 2351 [sym_kProtected; sym_kPrivate;
   sym_kStrict; sym_kRequired; sym_kOptional]; ACTIONS 1016 [sym_kStatic; sym_kVirtual;
   sym_kAbstract; sym_kDynamic; sym_kOverride; sym_kOverload; sym_kReintroduce; sym_kStdcall;
   sym_kCdecl; sym_kCppdecl; sym_kPascal; sym_kRegister; sym_kMwpascal];
   ACTIONS 11645 [sym_kMessage]; ACTIONS 11647 [sym_kDeprecated];
   ACTIONS 1016 [sym_kExperimental; sym_kPlatform; sym_kUnimplemented; sym_kCvar];
   ACTIONS 11649 [sym_kExport]; ACTIONS 1016 [sym_kFar; sym_kNear; sym_kSafecall; sym_kAssembler;
   sym_kNostackframe; sym_kInterrupt; sym_kNoreturn; sym_kIocheck; sym_kLocal; sym_kHardfloat;
   sym_kSoftfloat; sym_kMs_abi_default; sym_kMs_abi_cdecl; sym_kSaveregisters;
   sym_kSysv_abi_default; sym_kSysv_abi_cdecl; sym_kVectorcall; sym_kVarargs; sym_kWinapi];
   ACTIONS 11651 [sym_kAlias]; ACTIONS 2351 [sym_kCase; sym_kClass; sym_kConst; sym_kConstructor;
   sym_kDestructor; sym_kEnd; sym_kFunction]; ACTIONS 1016 [sym_kInline];
   ACTIONS 2351 [sym_kProcedure; sym_kProperty; sym_kResourcestring; sym_kThreadvar; sym_kType;
   sym_kVar]].

(** State 1691. *)
Definition ts_parse_table_1691 : parse_row :=
  [STATE 2875 [sym__ppIf]; STATE 2590 [sym__procAttributeNoExt];
   STATE 2591 [sym__procAttributesPp]; STATE 14895 [sym_procAttribute];
   STATE 1901 [aux_sym__declProc_repeat1]; ACTIONS 12322 [anon_sym_LBRACK];
   ACTIONS 2403 [aux_sym_ppUsesBlock_token1]; ACTIONS 3 [sym__space];
   ACTIONS 5 [sym_ppDirective]; ACTIONS 3 [sym_comment]; ACTIONS 1016 [sym_kDefault;
   sym_kNodefault]; ACTIONS 11641 [sym_kDispId]; ACTIONS 2396 [sym_kGeneric; sym_kOperator;
   sym_kPublished]; ACTIONS 2412 [sym_kPublic]; ACTIONS 2396 [sym_kProtected; sym_kPrivate;
   sym_kStrict; sym_kRequired; sym_kOptional]; ACTIONS 1016 [sym_kStatic; sym_kVirtual;
   sym_kAbstract; sym_kDynamic; sym_kOverride; sym_kOverload; sym_kReintroduce; sym_kStdcall;
   sym_kCdecl; sym_kCppdecl; sym_kPascal; sym_kRegister; sym_kMwpascal];
   ACTIONS 11645 [sym_kMessage]; ACTIONS 11647 [sym_kDeprecated];
   ACTIONS 1016 [sym_kExperimental; sym_kPlatform; sym_kUnimplemented; sym_kCvar];
   ACTIONS 11649 [sym_kExport]; ACTIONS 1016 [sym_kFar; sym_kNear; sym_kSafecall; sym_kAssembler;
   sym_kNostackframe; sym_kInterrupt; sym_kNoreturn; sym_kIocheck; sym_kLocal; sym_kHardfloat;
   sym_kSoftfloat; sym_kMs_abi_default; sym_kMs_abi_cdecl; sym_kSaveregisters;
   sym_kSysv_abi_default; sym_kSysv_abi_cdecl; sym_kVectorcall; sym_kVarargs; sym_kWinapi];
   ACTIONS 11651 [sym_kAlias]; ACTIONS 2396 [sym_kCase; sym_kClass; sym_kConst; sym_kConstructor;
   sym_kDestructor; sym_kEnd; sym_kFunction]; ACTIONS 1016 [sym_kInline];
   ACTIONS 2396 [sym_kProcedure; sym_kProperty; sym_kResourcestring; sym_kThreadvar; sym_kType;
   sym_kVar]].

(** State 1692. *)
Definition ts_parse_table_1692 : parse_row :=
  [STATE 2875 [sym__ppIf]; STATE 2590 [sym__procAttributeNoExt];
   STATE 2591 [sym__procAttributesPp]; STATE 14895 [sym_procAttribute];
   STATE 1703 [aux_sym__declProc_repeat1]; ACTIONS 12325 [anon_sym_LBRACK];
   ACTIONS 2486 [aux_sym_ppUsesBlock_token1]; ACTIONS 3 [sym__space];
   ACTIONS 5 [sym_ppDirective]; ACTIONS 3 [sym_comment]; ACTIONS 1016 [sym_kDefault;
   sym_kNodefault]; ACTIONS 11641 [sym_kDispId]; ACTIONS 2479 [sym_kGeneric; sym_kOperator;
   sym_kPublished]; ACTIONS 2495 [sym_kPublic]; ACTIONS 2479 [sym_kProtected; sym_kPrivate;
   sym_kStrict; sym_kRequired; sym_kOptional]; ACTIONS 1016 [sym_kStatic; sym_kVirtual;
   sym_kAbstract; sym_kDynamic; sym_kOverride; sym_kOverload; sym_kReintroduce; sym_kStdcall;
   sym_kCdecl; sym_kCppdecl; sym_kPascal; sym_kRegister; sym_kMwpascal];
   ACTIONS 11645 [sym_kMessage]; ACTIONS 11647 [sym_kDeprecated];
   ACTIONS 1016 [sym_kExperimental; sym_kPlatform; sym_kUnimplemented; sym_kCvar];
   ACTIONS 11649 [sym_kExport]; ACTIONS 1016 [sym_kFar; sym_kNear; sym_kSafecall; sym_kAssembler;
   sym_kNostackframe; sym_kInterrupt; sym_kNoreturn; sym_kIocheck; sym_kLocal; sym_kHardfloat;
   sym_kSoftfloat; sym_kMs_abi_default; sym_kMs_abi_cdecl; sym_kSaveregisters;
   sym_kSysv_abi_default; sym_kSysv_abi_cdecl; sym_kVectorcall; sym_kVarargs; sym_kWinapi];
   ACTIONS 11651 [sym_kAlias]; ACTIONS 2479 [sym_kCase; sym_kClass; sym_kConst; sym_kConstructor;
   sym_kDestructor; sym_kEnd; sym_kFunction]; ACTIONS 1016 [sym_kInline];
   ACTIONS 2479 [sym_kProcedure; sym_kProperty; sym_kResourcestring; sym_kThreadvar; sym_kType;
   sym_kVar]].

(** State 1693. *)
Definition ts_parse_table_1693 : parse_row :=
  [STATE 2875 [sym__ppIf]; STATE 2590 [sym__procAttributeNoExt];
   STATE 2591 [sym__procAttributesPp]; STATE 14895 [sym_procAttribute];
   STATE 1901 [aux_sym__declProc_repeat1]; ACTIONS 12328 [anon_sym_LBRACK];
   ACTIONS 2517 [aux_sym_ppUsesBlock_token1]; ACTIONS 3 [sym__space];
   ACTIONS 5 [sym_ppDirective]; ACTIONS 3 [sym_comment]; ACTIONS 1016 [sym_kDefault;
   sym_kNodefault]; ACTIONS 11641 [sym_kDispId]; ACTIONS 2510 [sym_kGeneric; sym_kOperator;
   sym_kPublished]; ACTIONS 2526 [sym_kPublic]; ACTIONS 2510 [sym_kProtected; sym_kPrivate;
   sym_kStrict; sym_kRequired; sym_kOptional]; ACTIONS 1016 [sym_kStatic; sym_kVirtual;
   sym_kAbstract; sym_kDynamic; sym_kOverride; sym_kOverload; sym_kReintroduce; sym_kStdcall;
   sym_kCdecl; sym_kCppdecl; sym_kPascal; sym_kRegister; sym_kMwpascal];
   ACTIONS 11645 [sym_kMessage]; ACTIONS 11647 [sym_kDeprecated];
   ACTIONS 1016 [sym_kExperimental; sym_kPlatform; sym_kUnimplemented; sym_kCvar];
   ACTIONS 11649 [sym_kExport]; ACTIONS 1016 [sym_kFar; sym_kNear; sym_kSafecall; sym_kAssembler;
   sym_kNostackframe; sym_kInterrupt; sym_kNoreturn; sym_kIocheck; sym_kLocal; sym_kHardfloat;
   sym_kSoftfloat; sym_kMs_abi_default; sym_kMs_abi_cdecl; sym_kSaveregisters;
   sym_kSysv_abi_default; sym_kSysv_abi_cdecl; sym_kVectorcall; sym_kVarargs; sym_kWinapi];
   ACTIONS 11651 [sym_kAlias]; ACTIONS 2510 [sym_kCase; sym_kClass; sym_kConst; sym_kConstructor;
   sym_kDestructor; sym_kEnd; sym_kFunction]; ACTIONS 1016 [sym_kInline];
   ACTIONS 2510 [sym_kProcedure; sym_kProperty; sym_kResourcestring; sym_kThreadvar; sym_kType;
   sym_kVar]].

(** State 1694. *)
Definition ts_parse_table_1694 : parse_row :=
  [STATE 2875 [sym__ppIf]; STATE 2590 [sym__procAttributeNoExt];
   STATE 2591 [sym__procAttributesPp]; STATE 14895 [sym_procAttribute];
   STATE 1901 [aux_sym__declProc_repeat1]; ACTIONS 12331 [anon_sym_LBRACK];
   ACTIONS 2550 [aux_sym_ppUsesBlock_token1]; ACTIONS 3 [sym__space];
   ACTIONS 5 [sym_ppDirective]; ACTIONS 3 [sym_comment]; ACTIONS 1016 [sym_kDefault;
   sym_kNodefault]; ACTIONS 11641 [sym_kDispId]; ACTIONS 2543 [sym_kGeneric; sym_kOperator;
   sym_kPublished]; ACTIONS 2559 [sym_kPublic]; ACTIONS 2543 [sym_kProtected; sym_kPrivate;
   sym_kStrict; sym_kRequired; sym_kOptional]; ACTIONS 1016 [sym_kStatic; sym_kVirtual;
   sym_kAbstract; sym_kDynamic; sym_kOverride; sym_kOverload; sym_kReintroduce; sym_kStdcall;
   sym_kCdecl; sym_kCppdecl; sym_kPascal; sym_kRegister; sym_kMwpascal];
   ACTIONS 11645 [sym_kMessage]; ACTIONS 11647 [sym_kDeprecated];
   ACTIONS 1016 [sym_kExperimental; sym_kPlatform; sym_kUnimplemented; sym_kCvar];
   ACTIONS 11649 [sym_kExport]; ACTIONS 1016 [sym_kFar; sym_kNear; sym_kSafecall; sym_kAssembler;
   sym_kNostackframe; sym_kInterrupt; sym_kNoreturn; sym_kIocheck; sym_kLocal; sym_kHardfloat;
   sym_kSoftfloat; sym_kMs_abi_default; sym_kMs_abi_cdecl; sym_kSaveregisters;
   sym_kSysv_abi_default; sym_kSysv_abi_cdecl; sym_kVectorcall; sym_kVarargs; sym_kWinapi];
   ACTIONS 11651 [sym_kAlias]; ACTIONS 2543 [sym_kCase; sym_kClass; sym_kConst; sym_kConstructor;
   sym_kDestructor; sym_kEnd; sym_kFunction]; ACTIONS 1016 [sym_kInline];
   ACTIONS 2543 [sym_kProcedure; sym_kProperty; sym_kResourcestring; sym_kThreadvar; sym_kType;
   sym_kVar]].

(** State 1695. *)
Definition ts_parse_table_1695 : parse_row :=
  [STATE 2875 [sym__ppIf]; STATE 2590 [sym__procAttributeNoExt];
   STATE 2591 [sym__procAttributesPp]; STATE 14895 [sym_procAttribute];
   STATE 1706 [aux_sym__declProc_repeat1]; ACTIONS 12334 [anon_sym_LBRACK];
   ACTIONS 2597 [aux_sym_ppUsesBlock_token1]; ACTIONS 3 [sym__space];
   ACTIONS 5 [sym_ppDirective]; ACTIONS 3 [sym_comment]; ACTIONS 1016 [sym_kDefault;
   sym_kNodefault]; ACTIONS 11641 [sym_kDispId]; ACTIONS 2590 [sym_kGeneric; sym_kOperator;
   sym_kPublished]; ACTIONS 2606 [sym_kPublic]; ACTIONS 2590 [sym_kProtected; sym_kPrivate;
   sym_kStrict; sym_kRequired; sym_kOptional]; ACTIONS 1016 [sym_kStatic; sym_kVirtual;
   sym_kAbstract; sym_kDynamic; sym_kOverride; sym_kOverload; sym_kReintroduce; sym_kStdcall;
   sym_kCdecl; sym_kCppdecl; sym_kPascal; sym_kRegister; sym_kMwpascal];
   ACTIONS 11645 [sym_kMessage]; ACTIONS 11647 [sym_kDeprecated];
   ACTIONS 1016 [sym_kExperimental; sym_kPlatform; sym_kUnimplemented; sym_kCvar];
   ACTIONS 11649 [sym_kExport]; ACTIONS 1016 [sym_kFar; sym_kNear; sym_kSafecall; sym_kAssembler;
   sym_kNostackframe; sym_kInterrupt; sym_kNoreturn; sym_kIocheck; sym_kLocal; sym_kHardfloat;
   sym_kSoftfloat; sym_kMs_abi_default; sym_kMs_abi_cdecl; sym_kSaveregisters;
   sym_kSysv_abi_default; sym_kSysv_abi_cdecl; sym_kVectorcall; sym_kVarargs; sym_kWinapi];
   ACTIONS 11651 [sym_kAlias]; ACTIONS 2590 [sym_kCase; sym_kClass; sym_kConst; sym_kConstructor;
   sym_kDestructor; sym_kEnd; sym_kFunction]; ACTIONS 1016 [sym_kInline];
   ACTIONS 2590 [sym_kProcedure; sym_kProperty; sym_kResourcestring; sym_kThreadvar; sym_kType;
   sym_kVar]].

(** State 1696. *)
Definition ts_parse_table_1696 : parse_row :=
  [STATE 2875 [sym__ppIf]; STATE 2590 [sym__procAttributeNoExt];
   STATE 2591 [sym__procAttributesPp]; STATE 14895 [sym_procAttribute];
   STATE 1901 [aux_sym__declProc_repeat1]; ACTIONS 12337 [anon_sym_LBRACK];
   ACTIONS 2628 [aux_sym_ppUsesBlock_token1]; ACTIONS 3 [sym__space];
   ACTIONS 5 [sym_ppDirective]; ACTIONS 3 [sym_comment]; ACTIONS 1016 [sym_kDefault;
   sym_kNodefault]; ACTIONS 11641 [sym_kDispId]; ACTIONS 2621 [sym_kGeneric; sym_kOperator;
   sym_kPublished]; ACTIONS 2637 [sym_kPublic]; ACTIONS 2621 [sym_kProtected; sym_kPrivate;
   sym_kStrict; sym_kRequired; sym_kOptional]; ACTIONS 1016 [sym_kStatic; sym_kVirtual;
   sym_kAbstract; sym_kDynamic; sym_kOverride; sym_kOverload; sym_kReintroduce; sym_kStdcall;
   sym_kCdecl; sym_kCppdecl; sym_kPascal; sym_kRegister; sym_kMwpascal];
   ACTIONS 11645 [sym_kMessage]; ACTIONS 11647 [sym_kDeprecated];
   ACTIONS 1016 [sym_kExperimental; sym_kPlatform; sym_kUnimplemented; sym_kCvar];
   ACTIONS 11649 [sym_kExport]; ACTIONS 1016 [sym_kFar; sym_kNear; sym_kSafecall; sym_kAssembler;
   sym_kNostackframe; sym_kInterrupt; sym_kNoreturn; sym_kIocheck; sym_kLocal; sym_kHardfloat;
   sym_kSoftfloat; sym_kMs_abi_default; sym_kMs_abi_cdecl; sym_kSaveregisters;
   sym_kSysv_abi_default; sym_kSysv_abi_cdecl; sym_kVectorcall; sym_kVarargs; sym_kWinapi];
   ACTIONS 11651 [sym_kAlias]; ACTIONS 2621 [sym_kCase; sym_kClass; sym_kConst; sym_kConstructor;
   sym_kDestructor; sym_kEnd; sym_kFunction]; ACTIONS 1016 [sym_kInline];
   ACTIONS 2621 [sym_kProcedure; sym_kProperty; sym_kResourcestring; sym_kThreadvar; sym_kType;
   sym_kVar]].

(** State 1697. *)
Definition ts_parse_table_1697 : parse_row :=
  [STATE 2875 [sym__ppIf]; STATE 2590 [sym__procAttributeNoExt];
   STATE 2591 [sym__procAttributesPp]; STATE 14895 [sym_procAttribute];
   STATE 1707 [aux_sym__declProc_repeat1]; ACTIONS 12340 [anon_sym_LBRACK];
   ACTIONS 2659 [aux_sym_ppUsesBlock_token1]; ACTIONS 3 [sym__space];
   ACTIONS 5 [sym_ppDirective]; ACTIONS 3 [sym_comment]; ACTIONS 1016 [sym_kDefault;
   sym_kNodefault]; ACTIONS 11641 [sym_kDispId]; ACTIONS 2652 [sym_kGeneric; sym_kOperator;
   sym_kPublished]; ACTIONS 2668 [sym_kPublic]; ACTIONS 2652 [sym_kProtected; sym_kPrivate;
   sym_kStrict; sym_kRequired; sym_kOptional]; ACTIONS 1016 [sym_kStatic; sym_kVirtual;
   sym_kAbstract; sym_kDynamic; sym_kOverride; sym_kOverload; sym_kReintroduce; sym_kStdcall;
   sym_kCdecl; sym_kCppdecl; sym_kPascal; sym_kRegister; sym_kMwpascal];
   ACTIONS 11645 [sym_kMessage]; ACTIONS 11647 [sym_kDeprecated];
   ACTIONS 1016 [sym_kExperimental; sym_kPlatform; sym_kUnimplemented; sym_kCvar];
   ACTIONS 11649 [sym_kExport]; ACTIONS 1016 [sym_kFar; sym_kNear; sym_kSafecall; sym_kAssembler;
   sym_kNostackframe; sym_kInterrupt; sym_kNoreturn; sym_kIocheck; sym_kLocal; sym_kHardfloat;
   sym_kSoftfloat; sym_kMs_abi_default; sym_kMs_abi_cdecl; sym_kSaveregisters;
   sym_kSysv_abi_default; sym_kSysv_abi_cdecl; sym_kVectorcall; sym_kVarargs; sym_kWinapi];
   ACTIONS 11651 [sym_kAlias]; ACTIONS 2652 [sym_kCase; sym_kClass; sym_kConst; sym_kConstructor;
   sym_kDestructor; sym_kEnd; sym_kFunction]; ACTIONS 1016 [sym_kInline];
   ACTIONS 2652 [sym_kProcedure; sym_kProperty; sym_kResourcestring; sym_kThreadvar; sym_kType;
   sym_kVar]].

(** State 1698. *)
Definition ts_parse_table_1698 : parse_row :=
  [STATE 2875 [sym__ppIf]; STATE 2590 [sym__procAttributeNoExt];
   STATE 2591 [sym__procAttributesPp]; STATE 14895 [sym_procAttribute];
   STATE 1708 [aux_sym__declProc_repeat1]; ACTIONS 12343 [anon_sym_LBRACK];
   ACTIONS 2692 [aux_sym_ppUsesBlock_token1]; ACTIONS 3 [sym__space];
   ACTIONS 5 [sym_ppDirective]; ACTIONS 3 [sym_comment]; ACTIONS 1016 [sym_kDefault;
   sym_kNodefault]; ACTIONS 11641 [sym_kDispId]; ACTIONS 2685 [sym_kGeneric; sym_kOperator;
   sym_kPublished]; ACTIONS 2701 [sym_kPublic]; ACTIONS 2685 [sym_kProtected; sym_kPrivate;
   sym_kStrict; sym_kRequired; sym_kOptional]; ACTIONS 1016 [sym_kStatic; sym_kVirtual;
   sym_kAbstract; sym_kDynamic; sym_kOverride; sym_kOverload; sym_kReintroduce; sym_kStdcall;
   sym_kCdecl; sym_kCppdecl; sym_kPascal; sym_kRegister; sym_kMwpascal];
   ACTIONS 11645 [sym_kMessage]; ACTIONS 11647 [sym_kDeprecated];
   ACTIONS 1016 [sym_kExperimental; sym_kPlatform; sym_kUnimplemented; sym_kCvar];
   ACTIONS 11649 [sym_kExport]; ACTIONS 1016 [sym_kFar; sym_kNear; sym_kSafecall; sym_kAssembler;
   sym_kNostackframe; sym_kInterrupt; sym_kNoreturn; sym_kIocheck; sym_kLocal; sym_kHardfloat;
   sym_kSoftfloat; sym_kMs_abi_default; sym_kMs_abi_cdecl; sym_kSaveregisters;
   sym_kSysv_abi_default; sym_kSysv_abi_cdecl; sym_kVectorcall; sym_kVarargs; sym_kWinapi];
   ACTIONS 11651 [sym_kAlias]; ACTIONS 2685 [sym_kCase; sym_kClass; sym_kConst; sym_kConstructor;
   sym_kDestructor; sym_kEnd; sym_kFunction]; ACTIONS 1016 [sym_kInline];
   ACTIONS 2685 [sym_kProcedure; sym_kProperty; sym_kResourcestring; sym_kThreadvar; sym_kType;
   sym_kVar]].

(** State 1699. *)
Definition ts_parse_table_1699 : parse_row :=
  [STATE 2875 [sym__ppIf]; STATE 2590 [sym__procAttributeNoExt];
   STATE 2591 [sym__procAttributesPp]; STATE 14895 [sym_procAttribute];
   STATE 1901 [aux_sym__declProc_repeat1]; ACTIONS 12346 [anon_sym_LBRACK];
   ACTIONS 2739 [aux_sym_ppUsesBlock_token1]; ACTIONS 3 [sym__space];
   ACTIONS 5 [sym_ppDirective]; ACTIONS 3 [sym_comment]; ACTIONS 1016 [sym_kDefault;
   sym_kNodefault]; ACTIONS 11641 [sym_kDispId]; ACTIONS 2732 [sym_kGeneric; sym_kOperator;
   sym_kPublished]; ACTIONS 2748 [sym_kPublic]; ACTIONS 2732 [sym_kProtected; sym_kPrivate;
   sym_kStrict; sym_kRequired; sym_kOptional]; ACTIONS 1016 [sym_kStatic; sym_kVirtual;
   sym_kAbstract; sym_kDynamic; sym_kOverride; sym_kOverload; sym_kReintroduce; sym_kStdcall;
   sym_kCdecl; sym_kCppdecl; sym_kPascal; sym_kRegister; sym_kMwpascal];
   ACTIONS 11645 [sym_kMessage]; ACTIONS 11647 [sym_kDeprecated];
   ACTIONS 1016 [sym_kExperimental; sym_kPlatform; sym_kUnimplemented; sym_kCvar];
   ACTIONS 11649 [sym_kExport]; ACTIONS 1016 [sym_kFar; sym_kNear; sym_kSafecall; sym_kAssembler;
   sym_kNostackframe; sym_kInterrupt; sym_kNoreturn; sym_kIocheck; sym_kLocal; sym_kHardfloat;
   sym_kSoftfloat; sym_kMs_abi_default; sym_kMs_abi_cdecl; sym_kSaveregisters;
   sym_kSysv_abi_default; sym_kSysv_abi_cdecl; sym_kVectorcall; sym_kVarargs; sym_kWinapi];
   ACTIONS 11651 [sym_kAlias]; ACTIONS 2732 [sym_kCase; sym_kClass; sym_kConst; sym_kConstructor;
   sym_kDestructor; sym_kEnd; sym_kFunction]; ACTIONS 1016 [sym_kInline];
   ACTIONS 2732 [sym_kProcedure; sym_kProperty; sym_kResourcestring; sym_kThreadvar; sym_kType;
   sym_kVar]].

(** State 1700. *)
Definition ts_parse_table_1700 : parse_row :=
  [STATE 2875 [sym__ppIf]; STATE 2590 [sym__procAttributeNoExt];
   STATE 2591 [sym__procAttributesPp]; STATE 14895 [sym_procAttribute];
   STATE 1901 [aux_sym__declProc_repeat1]; ACTIONS 12349 [anon_sym_LBRACK];
   ACTIONS 2848 [aux_sym_ppUsesBlock_token1]; ACTIONS 3 [sym__space];
   ACTIONS 5 [sym_ppDirective]; ACTIONS 3 [sym_comment]; ACTIONS 1016 [sym_kDefault;
   sym_kNodefault]; ACTIONS 11641 [sym_kDispId]; ACTIONS 2841 [sym_kGeneric; sym_kOperator;
   sym_kPublished]; ACTIONS 2857 [sym_kPublic]; ACTIONS 2841 [sym_kProtected; sym_kPrivate;
   sym_kStrict; sym_kRequired; sym_kOptional]; ACTIONS 1016 [sym_kStatic; sym_kVirtual;
   sym_kAbstract; sym_kDynamic; sym_kOverride; sym_kOverload; sym_kReintroduce; sym_kStdcall;
   sym_kCdecl; sym_kCppdecl; sym_kPascal; sym_kRegister; sym_kMwpascal];
   ACTIONS 11645 [sym_kMessage]; ACTIONS 11647 [sym_kDeprecated];
   ACTIONS 1016 [sym_kExperimental; sym_kPlatform; sym_kUnimplemented; sym_kCvar];
   ACTIONS 11649 [sym_kExport]; ACTIONS 1016 [sym_kFar; sym_kNear; sym_kSafecall; sym_kAssembler;
   sym_kNostackframe; sym_kInterrupt; sym_kNoreturn; sym_kIocheck; sym_kLocal; sym_kHardfloat;
   sym_kSoftfloat; sym_kMs_abi_default; sym_kMs_abi_cdecl; sym_kSaveregisters;
   sym_kSysv_abi_default; sym_kSysv_abi_cdecl; sym_kVectorcall; sym_kVarargs; sym_kWinapi];
   ACTIONS 11651 [sym_kAlias]; ACTIONS 2841 [sym_kCase; sym_kClass; sym_kConst; sym_kConstructor;
   sym_kDestructor; sym_kEnd; sym_kFunction]; ACTIONS 1016 [sym_kInline];
   ACTIONS 2841 [sym_kProcedure; sym_kProperty; sym_kResourcestring; sym_kThreadvar; sym_kType;
   sym_kVar]].

(** State 1701. *)
Definition ts_parse_table_1701 : parse_row :=
  [STATE 2875 [sym__ppIf]; STATE 2590 [sym__procAttributeNoExt];
   STATE 2591 [sym__procAttributesPp]; STATE 14895 [sym_procAttribute];
   STATE 1901 [aux_sym__declProc_repeat1]; ACTIONS 12352 [anon_sym_LBRACK];
   ACTIONS 2881 [aux_sym_ppUsesBlock_token1]; ACTIONS 3 [sym__space];
   ACTIONS 5 [sym_ppDirective]; ACTIONS 3 [sym_comment]; ACTIONS 1016 [sym_kDefault;
   sym_kNodefault]; ACTIONS 11641 [sym_kDispId]; ACTIONS 2874 [sym_kGeneric; sym_kOperator;
   sym_kPublished]; ACTIONS 2890 [sym_kPublic]; ACTIONS 2874 [sym_kProtected; sym_kPrivate;
   sym_kStrict; sym_kRequired; sym_kOptional]; ACTIONS 1016 [sym_kStatic; sym_kVirtual;
   sym_kAbstract; sym_kDynamic; sym_kOverride; sym_kOverload; sym_kReintroduce; sym_kStdcall;
   sym_kCdecl; sym_kCppdecl; sym_kPascal; sym_kRegister; sym_kMwpascal];
   ACTIONS 11645 [sym_kMessage]; ACTIONS 11647 [sym_kDeprecated];
   ACTIONS 1016 [sym_kExperimental; sym_kPlatform; sym_kUnimplemented; sym_kCvar];
   ACTIONS 11649 [sym_kExport]; ACTIONS 1016 [sym_kFar; sym_kNear; sym_kSafecall; sym_kAssembler;
   sym_kNostackframe; sym_kInterrupt; sym_kNoreturn; sym_kIocheck; sym_kLocal; sym_kHardfloat;
   sym_kSoftfloat; sym_kMs_abi_default; sym_kMs_abi_cdecl; sym_kSaveregisters;
   sym_kSysv_abi_default; sym_kSysv_abi_cdecl; sym_kVectorcall; sym_kVarargs; sym_kWinapi];
   ACTIONS 11651 [sym_kAlias]; ACTIONS 2874 [sym_kCase; sym_kClass; sym_kConst; sym_kConstructor;
   sym_kDestructor; sym_kEnd; sym_kFunction]; ACTIONS 1016 [sym_kInline];
   ACTIONS 2874 [sym_kProcedure; sym_kProperty; sym_kResourcestring; sym_kThreadvar; sym_kType;
   sym_kVar]].

(** State 1702. *)
Definition ts_parse_table_1702 : parse_row :=
  [STATE 2875 [sym__ppIf]; STATE 2590 [sym__procAttributeNoExt];
   STATE 2591 [sym__procAttributesPp]; STATE 14895 [sym_procAttribute];
   STATE 1710 [aux_sym__declProc_repeat1]; ACTIONS 12355 [anon_sym_LBRACK];
   ACTIONS 2914 [aux_sym_ppUsesBlock_token1]; ACTIONS 3 [sym__space];
   ACTIONS 5 [sym_ppDirective]; ACTIONS 3 [sym_comment]; ACTIONS 1016 [sym_kDefault;
   sym_kNodefault]; ACTIONS 11641 [sym_kDispId]; ACTIONS 2907 [sym_kGeneric; sym_kOperator;
   sym_kPublished]; ACTIONS 2923 [sym_kPublic]; ACTIONS 2907 [sym_kProtected; sym_kPrivate;
   sym_kStrict; sym_kRequired; sym_kOptional]; ACTIONS 1016 [sym_kStatic; sym_kVirtual;
   sym_kAbstract; sym_kDynamic; sym_kOverride; sym_kOverload; sym_kReintroduce; sym_kStdcall;
   sym_kCdecl; sym_kCppdecl; sym_kPascal; sym_kRegister; sym_kMwpascal];
   ACTIONS 11645 [sym_kMessage]; ACTIONS 11647 [sym_kDeprecated];
   ACTIONS 1016 [sym_kExperimental; sym_kPlatform; sym_kUnimplemented; sym_kCvar];
   ACTIONS 11649 [sym_kExport]; ACTIONS 1016 [sym_kFar; sym_kNear; sym_kSafecall; sym_kAssembler;
   sym_kNostackframe; sym_kInterrupt; sym_kNoreturn; sym_kIocheck; sym_kLocal; sym_kHardfloat;
   sym_kSoftfloat; sym_kMs_abi_default; sym_kMs_abi_cdecl; sym_kSaveregisters;
   sym_kSysv_abi_default; sym_kSysv_abi_cdecl; sym_kVectorcall; sym_kVarargs; sym_kWinapi];
   ACTIONS 11651 [sym_kAlias]; ACTIONS 2907 [sym_kCase; sym_kClass; sym_kConst; sym_kConstructor;
   sym_kDestructor; sym_kEnd; sym_kFunction]; ACTIONS 1016 [sym_kInline];
   ACTIONS 2907 [sym_kProcedure; sym_kProperty; sym_kResourcestring; sym_kThreadvar; sym_kType;
   sym_kVar]].

(** State 1703. *)
Definition ts_parse_table_1703 : parse_row :=
  [STATE 2875 [sym__ppIf]; STATE 2590 [sym__procAttributeNoExt];
   STATE 2591 [sym__procAttributesPp]; STATE 14895 [sym_procAttribute];
   STATE 1901 [aux_sym__declProc_repeat1]; ACTIONS 12358 [anon_sym_LBRACK];
   ACTIONS 2975 [aux_sym_ppUsesBlock_token1]; ACTIONS 3 [sym__space];
   ACTIONS 5 [sym_ppDirective]; ACTIONS 3 [sym_comment]; ACTIONS 1016 [sym_kDefault;
   sym_kNodefault]; ACTIONS 11641 [sym_kDispId]; ACTIONS 2968 [sym_kGeneric; sym_kOperator;
   sym_kPublished]; ACTIONS 2984 [sym_kPublic]; ACTIONS 2968 [sym_kProtected; sym_kPrivate;
   sym_kStrict; sym_kRequired; sym_kOptional]; ACTIONS 1016 [sym_kStatic; sym_kVirtual;
   sym_kAbstract; sym_kDynamic; sym_kOverride; sym_kOverload; sym_kReintroduce; sym_kStdcall;
   sym_kCdecl; sym_kCppdecl; sym_kPascal; sym_kRegister; sym_kMwpascal];
   ACTIONS 11645 [sym_kMessage]; ACTIONS 11647 [sym_kDeprecated];
   ACTIONS 1016 [sym_kExperimental; sym_kPlatform; sym_kUnimplemented; sym_kCvar];
   ACTIONS 11649 [sym_kExport]; ACTIONS 1016 [sym_kFar; sym_kNear; sym_kSafecall; sym_kAssembler;
   sym_kNostackframe; sym_kInterrupt; sym_kNoreturn; sym_kIocheck; sym_kLocal; sym_kHardfloat;
   sym_kSoftfloat; sym_kMs_abi_default; sym_kMs_abi_cdecl; sym_kSaveregisters;
   sym_kSysv_abi_default; sym_kSysv_abi_cdecl; sym_kVectorcall; sym_kVarargs; sym_kWinapi];
   ACTIONS 11651 [sym_kAlias]; ACTIONS 2968 [sym_kCase; sym_kClass; sym_kConst; sym_kConstructor;
   sym_kDestructor; sym_kEnd; sym_kFunction]; ACTIONS 1016 [sym_kInline];
   ACTIONS 2968 [sym_kProcedure; sym_kProperty; sym_kResourcestring; sym_kThreadvar; sym_kType;
   sym_kVar]].

(** State 1704. *)
Definition ts_parse_table_1704 : parse_row :=
  [STATE 2875 [sym__ppIf]; STATE 2590 [sym__procAttributeNoExt];
   STATE 2591 [sym__procAttributesPp]; STATE 14895 [sym_procAttribute];
   STATE 1711 [aux_sym__declProc_repeat1]; ACTIONS 12361 [anon_sym_LBRACK];
   ACTIONS 3008 [aux_sym_ppUsesBlock_token1]; ACTIONS 3 [sym__space];
   ACTIONS 5 [sym_ppDirective]; ACTIONS 3 [sym_comment]; ACTIONS 1016 [sym_kDefault;
   sym_kNodefault]; ACTIONS 11641 [sym_kDispId]; ACTIONS 3001 [sym_kGeneric; sym_kOperator;
   sym_kPublished]; ACTIONS 3017 [sym_kPublic]; ACTIONS 3001 [sym_kProtected; sym_kPrivate;
   sym_kStrict; sym_kRequired; sym_kOptional]; ACTIONS 1016 [sym_kStatic; sym_kVirtual;
   sym_kAbstract; sym_kDynamic; sym_kOverride; sym_kOverload; sym_kReintroduce; sym_kStdcall;
   sym_kCdecl; sym_kCppdecl; sym_kPascal; sym_kRegister; sym_kMwpascal];
   ACTIONS 11645 [sym_kMessage]; ACTIONS 11647 [sym_kDeprecated];
   ACTIONS 1016 [sym_kExperimental; sym_kPlatform; sym_kUnimplemented; sym_kCvar];
   ACTIONS 11649 [sym_kExport]; ACTIONS 1016 [sym_kFar; sym_kNear; sym_kSafecall; sym_kAssembler;
   sym_kNostackframe; sym_kInterrupt; sym_kNoreturn; sym_kIocheck; sym_kLocal; sym_kHardfloat;
   sym_kSoftfloat; sym_kMs_abi_default; sym_kMs_abi_cdecl; sym_kSaveregisters;
   sym_kSysv_abi_default; sym_kSysv_abi_cdecl; sym_kVectorcall; sym_kVarargs; sym_kWinapi];
   ACTIONS 11651 [sym_kAlias]; ACTIONS 3001 [sym_kCase; sym_kClass; sym_kConst; sym_kConstructor;
   sym_kDestructor; sym_kEnd; sym_kFunction]; ACTIONS 1016 [sym_kInline];
   ACTIONS 3001 [sym_kProcedure; sym_kProperty; sym_kResourcestring; sym_kThreadvar; sym_kType;
   sym_kVar]].

(** State 1705. *)
Definition ts_parse_table_1705 : parse_row :=
  [STATE 2875 [sym__ppIf]; STATE 2590 [sym__procAttributeNoExt];
   STATE 2591 [sym__procAttributesPp]; STATE 14895 [sym_procAttribute];
   STATE 1712 [aux_sym__declProc_repeat1]; ACTIONS 12364 [anon_sym_LBRACK];
   ACTIONS 3041 [aux_sym_ppUsesBlock_token1]; ACTIONS 3 [sym__space];
   ACTIONS 5 [sym_ppDirective]; ACTIONS 3 [sym_comment]; ACTIONS 1016 [sym_kDefault;
   sym_kNodefault]; ACTIONS 11641 [sym_kDispId]; ACTIONS 3034 [sym_kGeneric; sym_kOperator;
   sym_kPublished]; ACTIONS 3050 [sym_kPublic]; ACTIONS 3034 [sym_kProtected; sym_kPrivate;
   sym_kStrict; sym_kRequired; sym_kOptional]; ACTIONS 1016 [sym_kStatic; sym_kVirtual;
   sym_kAbstract; sym_kDynamic; sym_kOverride; sym_kOverload; sym_kReintroduce; sym_kStdcall;
   sym_kCdecl; sym_kCppdecl; sym_kPascal; sym_kRegister; sym_kMwpascal];
   ACTIONS 11645 [sym_kMessage]; ACTIONS 11647 [sym_kDeprecated];
   ACTIONS 1016 [sym_kExperimental; sym_kPlatform; sym_kUnimplemented; sym_kCvar];
   ACTIONS 11649 [sym_kExport]; ACTIONS 1016 [sym_kFar; sym_kNear; sym_kSafecall; sym_kAssembler;
   sym_kNostackframe; sym_kInterrupt; sym_kNoreturn; sym_kIocheck; sym_kLocal; sym_kHardfloat;
   sym_kSoftfloat; sym_kMs_abi_default; sym_kMs_abi_cdecl; sym_kSaveregisters;
   sym_kSysv_abi_default; sym_kSysv_abi_cdecl; sym_kVectorcall; sym_kVarargs; sym_kWinapi];
   ACTIONS 11651 [sym_kAlias]; ACTIONS 3034 [sym_kCase; sym_kClass; sym_kConst; sym_kConstructor;
   sym_kDestructor; sym_kEnd; sym_kFunction]; ACTIONS 1016 [sym_kInline];
   ACTIONS 3034 [sym_kProcedure; sym_kProperty; sym_kResourcestring; sym_kThreadvar; sym_kType;
   sym_kVar]].

(** State 1706. *)
Definition ts_parse_table_1706 : parse_row :=
  [STATE 2875 [sym__ppIf]; STATE 2590 [sym__procAttributeNoExt];
   STATE 2591 [sym__procAttributesPp]; STATE 14895 [sym_procAttribute];
   STATE 1901 [aux_sym__declProc_repeat1]; ACTIONS 12367 [anon_sym_LBRACK];
   ACTIONS 3074 [aux_sym_ppUsesBlock_token1]; ACTIONS 3 [sym__space];
   ACTIONS 5 [sym_ppDirective]; ACTIONS 3 [sym_comment]; ACTIONS 1016 [sym_kDefault;
   sym_kNodefault]; ACTIONS 11641 [sym_kDispId]; ACTIONS 3067 [sym_kGeneric; sym_kOperator;
   sym_kPublished]; ACTIONS 3083 [sym_kPublic]; ACTIONS 3067 [sym_kProtected; sym_kPrivate;
   sym_kStrict; sym_kRequired; sym_kOptional]; ACTIONS 1016 [sym_kStatic; sym_kVirtual;
   sym_kAbstract; sym_kDynamic; sym_kOverride; sym_kOverload; sym_kReintroduce; sym_kStdcall;
   sym_kCdecl; sym_kCppdecl; sym_kPascal; sym_kRegister; sym_kMwpascal];
   ACTIONS 11645 [sym_kMessage]; ACTIONS 11647 [sym_kDeprecated];
   ACTIONS 1016 [sym_kExperimental; sym_kPlatform; sym_kUnimplemented; sym_kCvar];
   ACTIONS 11649 [sym_kExport]; ACTIONS 1016 [sym_kFar; sym_kNear; sym_kSafecall; sym_kAssembler;
   sym_kNostackframe; sym_kInterrupt; sym_kNoreturn; sym_kIocheck; sym_kLocal; sym_kHardfloat;
   sym_kSoftfloat; sym_kMs_abi_default; sym_kMs_abi_cdecl; sym_kSaveregisters;
   sym_kSysv_abi_default; sym_kSysv_abi_cdecl; sym_kVectorcall; sym_kVarargs; sym_kWinapi];
   ACTIONS 11651 [sym_kAlias]; ACTIONS 3067 [sym_kCase; sym_kClass; sym_kConst; sym_kConstructor;
   sym_kDestructor; sym_kEnd; sym_kFunction]; ACTIONS 1016 [sym_kInline];
   ACTIONS 3067 [sym_kProcedure; sym_kProperty; sym_kResourcestring; sym_kThreadvar; sym_kType;
   sym_kVar]].

(** State 1707. *)
Definition ts_parse_table_1707 : parse_row :=
  [STATE 2875 [sym__ppIf]; STATE 2590 [sym__procAttributeNoExt];
   STATE 2591 [sym__procAttributesPp]; STATE 14895 [sym_procAttribute];
   STATE 1901 [aux_sym__declProc_repeat1]; ACTIONS 12370 [anon_sym_LBRACK];
   ACTIONS 3107 [aux_sym_ppUsesBlock_token1]; ACTIONS 3 [sym__space];
   ACTIONS 5 [sym_ppDirective]; ACTIONS 3 [sym_comment]; ACTIONS 1016 [sym_kDefault;
   sym_kNodefault]; ACTIONS 11641 [sym_kDispId]; ACTIONS 3100 [sym_kGeneric; sym_kOperator;
   sym_kPublished]; ACTIONS 3116 [sym_kPublic]; ACTIONS 3100 [sym_kProtected; sym_kPrivate;
   sym_kStrict; sym_kRequired; sym_kOptional]; ACTIONS 1016 [sym_kStatic; sym_kVirtual;
   sym_kAbstract; sym_kDynamic; sym_kOverride; sym_kOverload; sym_kReintroduce; sym_kStdcall;
   sym_kCdecl; sym_kCppdecl; sym_kPascal; sym_kRegister; sym_kMwpascal];
   ACTIONS 11645 [sym_kMessage]; ACTIONS 11647 [sym_kDeprecated];
   ACTIONS 1016 [sym_kExperimental; sym_kPlatform; sym_kUnimplemented; sym_kCvar];
   ACTIONS 11649 [sym_kExport]; ACTIONS 1016 [sym_kFar; sym_kNear; sym_kSafecall; sym_kAssembler;
   sym_kNostackframe; sym_kInterrupt; sym_kNoreturn; sym_kIocheck; sym_kLocal; sym_kHardfloat;
   sym_kSoftfloat; sym_kMs_abi_default; sym_kMs_abi_cdecl; sym_kSaveregisters;
   sym_kSysv_abi_default; sym_kSysv_abi_cdecl; sym_kVectorcall; sym_kVarargs; sym_kWinapi];
   ACTIONS 11651 [sym_kAlias]; ACTIONS 3100 [sym_kCase; sym_kClass; sym_kConst; sym_kConstructor;
   sym_kDestructor; sym_kEnd; sym_kFunction]; ACTIONS 1016 [sym_kInline];
   ACTIONS 3100 [sym_kProcedure; sym_kProperty; sym_kResourcestring; sym_kThreadvar; sym_kType;
   sym_kVar]].

(** State 1708. *)
Definition ts_parse_table_1708 : parse_row :=
  [STATE 2875 [sym__ppIf]; STATE 2590 [sym__procAttributeNoExt];
   STATE 2591 [sym__procAttributesPp]; STATE 14895 [sym_procAttribute];
   STATE 1901 [aux_sym__declProc_repeat1]; ACTIONS 12373 [anon_sym_LBRACK];
   ACTIONS 3140 [aux_sym_ppUsesBlock_token1]; ACTIONS 3 [sym__space];
   ACTIONS 5 [sym_ppDirective]; ACTIONS 3 [sym_comment]; ACTIONS 1016 [sym_kDefault;
   sym_kNodefault]; ACTIONS 11641 [sym_kDispId]; ACTIONS 3133 [sym_kGeneric; sym_kOperator;
   sym_kPublished]; ACTIONS 3149 [sym_kPublic]; ACTIONS 3133 [sym_kProtected; sym_kPrivate;
   sym_kStrict; sym_kRequired; sym_kOptional]; ACTIONS 1016 [sym_kStatic; sym_kVirtual;
   sym_kAbstract; sym_kDynamic; sym_kOverride; sym_kOverload; sym_kReintroduce; sym_kStdcall;
   sym_kCdecl; sym_kCppdecl; sym_kPascal; sym_kRegister; sym_kMwpascal];
   ACTIONS 11645 [sym_kMessage]; ACTIONS 11647 [sym_kDeprecated];
   ACTIONS 1016 [sym_kExperimental; sym_kPlatform; sym_kUnimplemented; sym_kCvar];
   ACTIONS 11649 [sym_kExport]; ACTIONS 1016 [sym_kFar; sym_kNear; sym_kSafecall; sym_kAssembler;
   sym_kNostackframe; sym_kInterrupt; sym_kNoreturn; sym_kIocheck; sym_kLocal; sym_kHardfloat;
   sym_kSoftfloat; sym_kMs_abi_default; sym_kMs_abi_cdecl; sym_kSaveregisters;
   sym_kSysv_abi_default; sym_kSysv_abi_cdecl; sym_kVectorcall; sym_kVarargs; sym_kWinapi];
   ACTIONS 11651 [sym_kAlias]; ACTIONS 3133 [sym_kCase; sym_kClass; sym_kConst; sym_kConstructor;
   sym_kDestructor; sym_kEnd; sym_kFunction]; ACTIONS 1016 [sym_kInline];
   ACTIONS 3133 [sym_kProcedure; sym_kProperty; sym_kResourcestring; sym_kThreadvar; sym_kType;
   sym_kVar]].

(** State 1709. *)
Definition ts_parse_table_1709 : parse_row :=
  [STATE 2875 [sym__ppIf]; STATE 2590 [sym__procAttributeNoExt];
   STATE 2591 [sym__procAttributesPp]; STATE 14895 [sym_procAttribute];
   STATE 1714 [aux_sym__declProc_repeat1]; ACTIONS 12376 [anon_sym_LBRACK];
   ACTIONS 2211 [aux_sym_ppUsesBlock_token1]; ACTIONS 3 [sym__space];
   ACTIONS 5 [sym_ppDirective]; ACTIONS 3 [sym_comment]; ACTIONS 1016 [sym_kDefault;
   sym_kNodefault]; ACTIONS 11641 [sym_kDispId]; ACTIONS 2204 [sym_kGeneric; sym_kOperator;
   sym_kPublished]; ACTIONS 2220 [sym_kPublic]; ACTIONS 2204 [sym_kProtected; sym_kPrivate;
   sym_kStrict; sym_kRequired; sym_kOptional]; ACTIONS 1016 [sym_kStatic; sym_kVirtual;
   sym_kAbstract; sym_kDynamic; sym_kOverride; sym_kOverload; sym_kReintroduce; sym_kStdcall;
   sym_kCdecl; sym_kCppdecl; sym_kPascal; sym_kRegister; sym_kMwpascal];
   ACTIONS 11645 [sym_kMessage]; ACTIONS 11647 [sym_kDeprecated];
   ACTIONS 1016 [sym_kExperimental; sym_kPlatform; sym_kUnimplemented; sym_kCvar];
   ACTIONS 11649 [sym_kExport]; ACTIONS 1016 [sym_kFar; sym_kNear; sym_kSafecall; sym_kAssembler;
   sym_kNostackframe; sym_kInterrupt; sym_kNoreturn; sym_kIocheck; sym_kLocal; sym_kHardfloat;
   sym_kSoftfloat; sym_kMs_abi_default; sym_kMs_abi_cdecl; sym_kSaveregisters;
   sym_kSysv_abi_default; sym_kSysv_abi_cdecl; sym_kVectorcall; sym_kVarargs; sym_kWinapi];
   ACTIONS 11651 [sym_kAlias]; ACTIONS 2204 [sym_kCase; sym_kClass; sym_kConst; sym_kConstructor;
   sym_kDestructor; sym_kEnd; sym_kFunction]; ACTIONS 1016 [sym_kInline];
   ACTIONS 2204 [sym_kProcedure; sym_kProperty; sym_kResourcestring; sym_kThreadvar; sym_kType;
   sym_kVar]].

(** State 1710. *)
Definition ts_parse_table_1710 : parse_row :=
  [STATE 2875 [sym__ppIf]; STATE 2590 [sym__procAttributeNoExt];
   STATE 2591 [sym__procAttributesPp]; STATE 14895 [sym_procAttribute];
   STATE 1901 [aux_sym__declProc_repeat1]; ACTIONS 12379 [anon_sym_LBRACK];
   ACTIONS 992 [aux_sym_ppUsesBlock_token1]; ACTIONS 3 [sym__space]; ACTIONS 5 [sym_ppDirective];
   ACTIONS 3 [sym_comment]; ACTIONS 1016 [sym_kDefault; sym_kNodefault];
   ACTIONS 11641 [sym_kDispId]; ACTIONS 985 [sym_kGeneric; sym_kOperator; sym_kPublished];
   ACTIONS 1001 [sym_kPublic]; ACTIONS 985 [sym_kProtected; sym_kPrivate; sym_kStrict;
   sym_kRequired; sym_kOptional]; ACTIONS 1016 [sym_kStatic; sym_kVirtual; sym_kAbstract;
   sym_kDynamic; sym_kOverride; sym_kOverload; sym_kReintroduce; sym_kStdcall; sym_kCdecl;
   sym_kCppdecl; sym_kPascal; sym_kRegister; sym_kMwpascal]; ACTIONS 11645 [sym_kMessage];
   ACTIONS 11647 [sym_kDeprecated]; ACTIONS 1016 [sym_kExperimental; sym_kPlatform;
   sym_kUnimplemented; sym_kCvar]; ACTIONS 11649 [sym_kExport]; ACTIONS 1016 [sym_kFar;
   sym_kNear; sym_kSafecall; sym_kAssembler; sym_kNostackframe; sym_kInterrupt; sym_kNoreturn;
   sym_kIocheck; sym_kLocal; sym_kHardfloat; sym_kSoftfloat; sym_kMs_abi_default;
   sym_kMs_abi_cdecl; sym_kSaveregisters; sym_kSysv_abi_default; sym_kSysv_abi_cdecl;
   sym_kVectorcall; sym_kVarargs; sym_kWinapi]; ACTIONS 11651 [sym_kAlias];
   ACTIONS 985 [sym_kCase; sym_kClass; sym_kConst; sym_kConstructor; sym_kDestructor; sym_kEnd;
   sym_kFunction]; ACTIONS 1016 [sym_kInline]; ACTIONS 985 [sym_kProcedure; sym_kProperty;
   sym_kResourcestring; sym_kThreadvar; sym_kType; sym_kVar]].

(** State 1711. *)
Definition ts_parse_table_1711 : parse_row :=
  [STATE 2875 [sym__ppIf]; STATE 2590 [sym__procAttributeNoExt];
   STATE 2591 [sym__procAttributesPp]; STATE 14895 [sym_procAttribute];
   STATE 1901 [aux_sym__declProc_repeat1]; ACTIONS 12382 [anon_sym_LBRACK];
   ACTIONS 1025 [aux_sym_ppUsesBlock_token1]; ACTIONS 3 [sym__space];
   ACTIONS 5 [sym_ppDirective]; ACTIONS 3 [sym_comment]; ACTIONS 1016 [sym_kDefault;
   sym_kNodefault]; ACTIONS 11641 [sym_kDispId]; ACTIONS 1018 [sym_kGeneric; sym_kOperator;
   sym_kPublished]; ACTIONS 1034 [sym_kPublic]; ACTIONS 1018 [sym_kProtected; sym_kPrivate;
   sym_kStrict; sym_kRequired; sym_kOptional]; ACTIONS 1016 [sym_kStatic; sym_kVirtual;
   sym_kAbstract; sym_kDynamic; sym_kOverride; sym_kOverload; sym_kReintroduce; sym_kStdcall;
   sym_kCdecl; sym_kCppdecl; sym_kPascal; sym_kRegister; sym_kMwpascal];
   ACTIONS 11645 [sym_kMessage]; ACTIONS 11647 [sym_kDeprecated];
   ACTIONS 1016 [sym_kExperimental; sym_kPlatform; sym_kUnimplemented; sym_kCvar];
   ACTIONS 11649 [sym_kExport]; ACTIONS 1016 [sym_kFar; sym_kNear; sym_kSafecall; sym_kAssembler;
   sym_kNostackframe; sym_kInterrupt; sym_kNoreturn; sym_kIocheck; sym_kLocal; sym_kHardfloat;
   sym_kSoftfloat; sym_kMs_abi_default; sym_kMs_abi_cdecl; sym_kSaveregisters;
   sym_kSysv_abi_default; sym_kSysv_abi_cdecl; sym_kVectorcall; sym_kVarargs; sym_kWinapi];
   ACTIONS 11651 [sym_kAlias]; ACTIONS 1018 [sym_kCase; sym_kClass; sym_kConst; sym_kConstructor;
   sym_kDestructor; sym_kEnd; sym_kFunction]; ACTIONS 1016 [sym_kInline];
   ACTIONS 1018 [sym_kProcedure; sym_kProperty; sym_kResourcestring; sym_kThreadvar; sym_kType;
   sym_kVar]].

(** State 1712. *)
Definition ts_parse_table_1712 : parse_row :=
  [STATE 2875 [sym__ppIf]; STATE 2590 [sym__procAttributeNoExt];
   STATE 2591 [sym__procAttributesPp]; STATE 14895 [sym_procAttribute];
   STATE 1901 [aux_sym__declProc_repeat1]; ACTIONS 12385 [anon_sym_LBRACK];
   ACTIONS 1056 [aux_sym_ppUsesBlock_token1]; ACTIONS 3 [sym__space];
   ACTIONS 5 [sym_ppDirective]; ACTIONS 3 [sym_comment]; ACTIONS 1016 [sym_kDefault;
   sym_kNodefault]; ACTIONS 11641 [sym_kDispId]; ACTIONS 1049 [sym_kGeneric; sym_kOperator;
   sym_kPublished]; ACTIONS 1065 [sym_kPublic]; ACTIONS 1049 [sym_kProtected; sym_kPrivate;
   sym_kStrict; sym_kRequired; sym_kOptional]; ACTIONS 1016 [sym_kStatic; sym_kVirtual;
   sym_kAbstract; sym_kDynamic; sym_kOverride; sym_kOverload; sym_kReintroduce; sym_kStdcall;
   sym_kCdecl; sym_kCppdecl; sym_kPascal; sym_kRegister; sym_kMwpascal];
   ACTIONS 11645 [sym_kMessage]; ACTIONS 11647 [sym_kDeprecated];
   ACTIONS 1016 [sym_kExperimental; sym_kPlatform; sym_kUnimplemented; sym_kCvar];
   ACTIONS 11649 [sym_kExport]; ACTIONS 1016 [sym_kFar; sym_kNear; sym_kSafecall; sym_kAssembler;
   sym_kNostackframe; sym_kInterrupt; sym_kNoreturn; sym_kIocheck; sym_kLocal; sym_kHardfloat;
   sym_kSoftfloat; sym_kMs_abi_default; sym_kMs_abi_cdecl; sym_kSaveregisters;
   sym_kSysv_abi_default; sym_kSysv_abi_cdecl; sym_kVectorcall; sym_kVarargs; sym_kWinapi];
   ACTIONS 11651 [sym_kAlias]; ACTIONS 1049 [sym_kCase; sym_kClass; sym_kConst; sym_kConstructor;
   sym_kDestructor; sym_kEnd; sym_kFunction]; ACTIONS 1016 [sym_kInline];
   ACTIONS 1049 [sym_kProcedure; sym_kProperty; sym_kResourcestring; sym_kThreadvar; sym_kType;
   sym_kVar]].

(** State 1713. *)
Definition ts_parse_table_1713 : parse_row :=
  [STATE 2875 [sym__ppIf]; STATE 2590 [sym__procAttributeNoExt];
   STATE 2591 [sym__procAttributesPp]; STATE 14895 [sym_procAttribute];
   STATE 1715 [aux_sym__declProc_repeat1]; ACTIONS 12388 [anon_sym_LBRACK];
   ACTIONS 1087 [aux_sym_ppUsesBlock_token1]; ACTIONS 3 [sym__space];
   ACTIONS 5 [sym_ppDirective]; ACTIONS 3 [sym_comment]; ACTIONS 1016 [sym_kDefault;
   sym_kNodefault]; ACTIONS 11641 [sym_kDispId]; ACTIONS 1080 [sym_kGeneric; sym_kOperator;
   sym_kPublished]; ACTIONS 1096 [sym_kPublic]; ACTIONS 1080 [sym_kProtected; sym_kPrivate;
   sym_kStrict; sym_kRequired; sym_kOptional]; ACTIONS 1016 [sym_kStatic; sym_kVirtual;
   sym_kAbstract; sym_kDynamic; sym_kOverride; sym_kOverload; sym_kReintroduce; sym_kStdcall;
   sym_kCdecl; sym_kCppdecl; sym_kPascal; sym_kRegister; sym_kMwpascal];
   ACTIONS 11645 [sym_kMessage]; ACTIONS 11647 [sym_kDeprecated];
   ACTIONS 1016 [sym_kExperimental; sym_kPlatform; sym_kUnimplemented; sym_kCvar];
   ACTIONS 11649 [sym_kExport]; ACTIONS 1016 [sym_kFar; sym_kNear; sym_kSafecall; sym_kAssembler;
   sym_kNostackframe; sym_kInterrupt; sym_kNoreturn; sym_kIocheck; sym_kLocal; sym_kHardfloat;
   sym_kSoftfloat; sym_kMs_abi_default; sym_kMs_abi_cdecl; sym_kSaveregisters;
   sym_kSysv_abi_default; sym_kSysv_abi_cdecl; sym_kVectorcall; sym_kVarargs; sym_kWinapi];
   ACTIONS 11651 [sym_kAlias]; ACTIONS 1080 [sym_kCase; sym_kClass; sym_kConst; sym_kConstructor;
   sym_kDestructor; sym_kEnd; sym_kFunction]; ACTIONS 1016 [sym_kInline];
   ACTIONS 1080 [sym_kProcedure; sym_kProperty; sym_kResourcestring; sym_kThreadvar; sym_kType;
   sym_kVar]].

(** State 1714. *)
Definition ts_parse_table_1714 : parse_row :=
  [STATE 2875 [sym__ppIf]; STATE 2590 [sym__procAttributeNoExt];
   STATE 2591 [sym__procAttributesPp]; STATE 14895 [sym_procAttribute];
   STATE 1901 [aux_sym__declProc_repeat1]; ACTIONS 12391 [anon_sym_LBRACK];
   ACTIONS 1118 [aux_sym_ppUsesBlock_token1]; ACTIONS 3 [sym__space];
   ACTIONS 5 [sym_ppDirective]; ACTIONS 3 [sym_comment]; ACTIONS 1016 [sym_kDefault;
   sym_kNodefault]; ACTIONS 11641 [sym_kDispId]; ACTIONS 1111 [sym_kGeneric; sym_kOperator;
   sym_kPublished]; ACTIONS 1127 [sym_kPublic]; ACTIONS 1111 [sym_kProtected; sym_kPrivate;
   sym_kStrict; sym_kRequired; sym_kOptional]; ACTIONS 1016 [sym_kStatic; sym_kVirtual;
   sym_kAbstract; sym_kDynamic; sym_kOverride; sym_kOverload; sym_kReintroduce; sym_kStdcall;
   sym_kCdecl; sym_kCppdecl; sym_kPascal; sym_kRegister; sym_kMwpascal];
   ACTIONS 11645 [sym_kMessage]; ACTIONS 11647 [sym_kDeprecated];
   ACTIONS 1016 [sym_kExperimental; sym_kPlatform; sym_kUnimplemented; sym_kCvar];
   ACTIONS 11649 [sym_kExport]; ACTIONS 1016 [sym_kFar; sym_kNear; sym_kSafecall; sym_kAssembler;
   sym_kNostackframe; sym_kInterrupt; sym_kNoreturn; sym_kIocheck; sym_kLocal; sym_kHardfloat;
   sym_kSoftfloat; sym_kMs_abi_default; sym_kMs_abi_cdecl; sym_kSaveregisters;
   sym_kSysv_abi_default; sym_kSysv_abi_cdecl; sym_kVectorcall; sym_kVarargs; sym_kWinapi];
   ACTIONS 11651 [sym_kAlias]; ACTIONS 1111 [sym_kCase; sym_kClass; sym_kConst; sym_kConstructor;
   sym_kDestructor; sym_kEnd; sym_kFunction]; ACTIONS 1016 [sym_kInline];
   ACTIONS 1111 [sym_kProcedure; sym_kProperty; sym_kResourcestring; sym_kThreadvar; sym_kType;
   sym_kVar]].

(** State 1715. *)
Definition ts_parse_table_1715 : parse_row :=
  [STATE 2875 [sym__ppIf]; STATE 2590 [sym__procAttributeNoExt];
   STATE 2591 [sym__procAttributesPp]; STATE 14895 [sym_procAttribute];
   STATE 1901 [aux_sym__declProc_repeat1]; ACTIONS 12394 [anon_sym_LBRACK];
   ACTIONS 1149 [aux_sym_ppUsesBlock_token1]; ACTIONS 3 [sym__space];
   ACTIONS 5 [sym_ppDirective]; ACTIONS 3 [sym_comment]; ACTIONS 1016 [sym_kDefault;
   sym_kNodefault]; ACTIONS 11641 [sym_kDispId]; ACTIONS 1142 [sym_kGeneric; sym_kOperator;
   sym_kPublished]; ACTIONS 1158 [sym_kPublic]; ACTIONS 1142 [sym_kProtected; sym_kPrivate;
   sym_kStrict; sym_kRequired; sym_kOptional]; ACTIONS 1016 [sym_kStatic; sym_kVirtual;
   sym_kAbstract; sym_kDynamic; sym_kOverride; sym_kOverload; sym_kReintroduce; sym_kStdcall;
   sym_kCdecl; sym_kCppdecl; sym_kPascal; sym_kRegister; sym_kMwpascal];
   ACTIONS 11645 [sym_kMessage]; ACTIONS 11647 [sym_kDeprecated];
   ACTIONS 1016 [sym_kExperimental; sym_kPlatform; sym_kUnimplemented; sym_kCvar];
   ACTIONS 11649 [sym_kExport]; ACTIONS 1016 [sym_kFar; sym_kNear; sym_kSafecall; sym_kAssembler;
   sym_kNostackframe; sym_kInterrupt; sym_kNoreturn; sym_kIocheck; sym_kLocal; sym_kHardfloat;
   sym_kSoftfloat; sym_kMs_abi_default; sym_kMs_abi_cdecl; sym_kSaveregisters;
   sym_kSysv_abi_default; sym_kSysv_abi_cdecl; sym_kVectorcall; sym_kVarargs; sym_kWinapi];
   ACTIONS 11651 [sym_kAlias]; ACTIONS 1142 [sym_kCase; sym_kClass; sym_kConst; sym_kConstructor;
   sym_kDestructor; sym_kEnd; sym_kFunction]; ACTIONS 1016 [sym_kInline];
   ACTIONS 1142 [sym_kProcedure; sym_kProperty; sym_kResourcestring; sym_kThreadvar; sym_kType;
   sym_kVar]].

(** State 1716. *)
Definition ts_parse_table_1716 : parse_row :=
  [STATE 2907 [sym__ppIf]; STATE 2561 [sym__procAttributeNoExt];
   STATE 2564 [sym__procAttributesPp]; STATE 15242 [sym_procAttribute];
   STATE 1716 [aux_sym__declProc_repeat1]; ACTIONS 12397 [anon_sym_LBRACK];
   ACTIONS 1180 [aux_sym_ppUsesBlock_token1]; ACTIONS 3 [sym__space];
   ACTIONS 5 [sym_ppDirective]; ACTIONS 3 [sym_comment]; ACTIONS 1183 [sym_kDefault;
   sym_kNodefault]; ACTIONS 1186 [sym_kDispId]; ACTIONS 1173 [sym_kGeneric; sym_kOperator];
   ACTIONS 1189 [sym_kPublic]; ACTIONS 1183 [sym_kStatic; sym_kVirtual; sym_kAbstract;
   sym_kDynamic; sym_kOverride; sym_kOverload; sym_kReintroduce; sym_kStdcall; sym_kCdecl;
   sym_kCppdecl; sym_kPascal; sym_kRegister; sym_kMwpascal]; ACTIONS 1192 [sym_kMessage];
   ACTIONS 1195 [sym_kDeprecated]; ACTIONS 1183 [sym_kExperimental; sym_kPlatform;
   sym_kUnimplemented; sym_kCvar]; ACTIONS 1198 [sym_kExport]; ACTIONS 1183 [sym_kFar; sym_kNear;
   sym_kSafecall; sym_kAssembler; sym_kNostackframe; sym_kInterrupt; sym_kNoreturn; sym_kIocheck;
   sym_kLocal; sym_kHardfloat; sym_kSoftfloat; sym_kMs_abi_default; sym_kMs_abi_cdecl;
   sym_kSaveregisters; sym_kSysv_abi_default; sym_kSysv_abi_cdecl; sym_kVectorcall; sym_kVarargs;
   sym_kWinapi]; ACTIONS 1201 [sym_kAlias]; ACTIONS 1173 [sym_kClass; sym_kConst;
   sym_kConstructor; sym_kDestructor; sym_kEnd; sym_kExports; sym_kFinalization; sym_kFunction;
   sym_kImplementation; sym_kInitialization]; ACTIONS 1183 [sym_kInline];
   ACTIONS 1173 [sym_kInterface; sym_kLabel; sym_kProcedure; sym_kProperty; sym_kResourcestring;
   sym_kThreadvar; sym_kType; sym_kUses; sym_kVar]].

(** State 1717. *)
Definition ts_parse_table_1717 : parse_row :=
  [STATE 2907 [sym__ppIf]; STATE 2561 [sym__procAttributeNoExt];
   STATE 2564 [sym__procAttributesPp]; STATE 15242 [sym_procAttribute];
   STATE 1719 [aux_sym__declProc_repeat1]; ACTIONS 12400 [anon_sym_LBRACK];
   ACTIONS 1341 [aux_sym_ppUsesBlock_token1]; ACTIONS 3 [sym__space];
   ACTIONS 5 [sym_ppDirective]; ACTIONS 3 [sym_comment]; ACTIONS 1016 [sym_kDefault;
   sym_kNodefault]; ACTIONS 11641 [sym_kDispId]; ACTIONS 1334 [sym_kGeneric; sym_kOperator];
   ACTIONS 11643 [sym_kPublic]; ACTIONS 1016 [sym_kStatic; sym_kVirtual; sym_kAbstract;
   sym_kDynamic; sym_kOverride; sym_kOverload; sym_kReintroduce; sym_kStdcall; sym_kCdecl;
   sym_kCppdecl; sym_kPascal; sym_kRegister; sym_kMwpascal]; ACTIONS 11645 [sym_kMessage];
   ACTIONS 11647 [sym_kDeprecated]; ACTIONS 1016 [sym_kExperimental; sym_kPlatform;
   sym_kUnimplemented; sym_kCvar]; ACTIONS 11649 [sym_kExport]; ACTIONS 1016 [sym_kFar;
   sym_kNear; sym_kSafecall; sym_kAssembler; sym_kNostackframe; sym_kInterrupt; sym_kNoreturn;
   sym_kIocheck; sym_kLocal; sym_kHardfloat; sym_kSoftfloat; sym_kMs_abi_default;
   sym_kMs_abi_cdecl; sym_kSaveregisters; sym_kSysv_abi_default; sym_kSysv_abi_cdecl;
   sym_kVectorcall; sym_kVarargs; sym_kWinapi]; ACTIONS 11651 [sym_kAlias];
   ACTIONS 1334 [sym_kClass; sym_kConst; sym_kConstructor; sym_kDestructor; sym_kEnd;
   sym_kExports; sym_kFinalization; sym_kFunction; sym_kImplementation; sym_kInitialization];
   ACTIONS 1016 [sym_kInline]; ACTIONS 1334 [sym_kInterface; sym_kLabel; sym_kProcedure;
   sym_kProperty; sym_kResourcestring; sym_kThreadvar; sym_kType; sym_kUses; sym_kVar]].

(** State 1718. *)
Definition ts_parse_table_1718 : parse_row :=
  [STATE 2907 [sym__ppIf]; STATE 2561 [sym__procAttributeNoExt];
   STATE 2564 [sym__procAttributesPp]; STATE 15242 [sym_procAttribute];
   STATE 1723 [aux_sym__declProc_repeat1]; ACTIONS 12403 [anon_sym_LBRACK];
   ACTIONS 1390 [aux_sym_ppUsesBlock_token1]; ACTIONS 3 [sym__space];
   ACTIONS 5 [sym_ppDirective]; ACTIONS 3 [sym_comment]; ACTIONS 1016 [sym_kDefault;
   sym_kNodefault]; ACTIONS 11641 [sym_kDispId]; ACTIONS 1383 [sym_kGeneric; sym_kOperator];
   ACTIONS 11643 [sym_kPublic]; ACTIONS 1016 [sym_kStatic; sym_kVirtual; sym_kAbstract;
   sym_kDynamic; sym_kOverride; sym_kOverload; sym_kReintroduce; sym_kStdcall; sym_kCdecl;
   sym_kCppdecl; sym_kPascal; sym_kRegister; sym_kMwpascal]; ACTIONS 11645 [sym_kMessage];
   ACTIONS 11647 [sym_kDeprecated]; ACTIONS 1016 [sym_kExperimental; sym_kPlatform;
   sym_kUnimplemented; sym_kCvar]; ACTIONS 11649 [sym_kExport]; ACTIONS 1016 [sym_kFar;
   sym_kNear; sym_kSafecall; sym_kAssembler; sym_kNostackframe; sym_kInterrupt; sym_kNoreturn;
   sym_kIocheck; sym_kLocal; sym_kHardfloat; sym_kSoftfloat; sym_kMs_abi_default;
   sym_kMs_abi_cdecl; sym_kSaveregisters; sym_kSysv_abi_default; sym_kSysv_abi_cdecl;
   sym_kVectorcall; sym_kVarargs; sym_kWinapi]; ACTIONS 11651 [sym_kAlias];
   ACTIONS 1383 [sym_kClass; sym_kConst; sym_kConstructor; sym_kDestructor; sym_kEnd;
   sym_kExports; sym_kFinalization; sym_kFunction; sym_kImplementation; sym_kInitialization];
   ACTIONS 1016 [sym_kInline]; ACTIONS 1383 [sym_kInterface; sym_kLabel; sym_kProcedure;
   sym_kProperty; sym_kResourcestring; sym_kThreadvar; sym_kType; sym_kUses; sym_kVar]].

(** State 1719. *)
Definition ts_parse_table_1719 : parse_row :=
  [STATE 2907 [sym__ppIf]; STATE 2561 [sym__procAttributeNoExt];
   STATE 2564 [sym__procAttributesPp]; STATE 15242 [sym_procAttribute];
   STATE 1716 [aux_sym__declProc_repeat1]; ACTIONS 12406 [anon_sym_LBRACK];
   ACTIONS 1439 [aux_sym_ppUsesBlock_token1]; ACTIONS 3 [sym__space];
   ACTIONS 5 [sym_ppDirective]; ACTIONS 3 [sym_comment]; ACTIONS 1016 [sym_kDefault;
   sym_kNodefault]; ACTIONS 11641 [sym_kDispId]; ACTIONS 1432 [sym_kGeneric; sym_kOperator];
   ACTIONS 11643 [sym_kPublic]; ACTIONS 1016 [sym_kStatic; sym_kVirtual; sym_kAbstract;
   sym_kDynamic; sym_kOverride; sym_kOverload; sym_kReintroduce; sym_kStdcall; sym_kCdecl;
   sym_kCppdecl; sym_kPascal; sym_kRegister; sym_kMwpascal]; ACTIONS 11645 [sym_kMessage];
   ACTIONS 11647 [sym_kDeprecated]; ACTIONS 1016 [sym_kExperimental; sym_kPlatform;
   sym_kUnimplemented; sym_kCvar]; ACTIONS 11649 [sym_kExport]; ACTIONS 1016 [sym_kFar;
   sym_kNear; sym_kSafecall; sym_kAssembler; sym_kNostackframe; sym_kInterrupt; sym_kNoreturn;
   sym_kIocheck; sym_kLocal; sym_kHardfloat; sym_kSoftfloat; sym_kMs_abi_default;
   sym_kMs_abi_cdecl; sym_kSaveregisters; sym_kSysv_abi_default; sym_kSysv_abi_cdecl;
   sym_kVectorcall; sym_kVarargs; sym_kWinapi]; ACTIONS 11651 [sym_kAlias];
   ACTIONS 1432 [sym_kClass; sym_kConst; sym_kConstructor; sym_kDestructor; sym_kEnd;
   sym_kExports; sym_kFinalization; sym_kFunction; sym_kImplementation; sym_kInitialization];
   ACTIONS 1016 [sym_kInline]; ACTIONS 1432 [sym_kInterface; sym_kLabel; sym_kProcedure;
   sym_kProperty; sym_kResourcestring; sym_kThreadvar; sym_kType; sym_kUses; sym_kVar]].

(** State 1720. *)
Definition ts_parse_table_1720 : parse_row :=
  [STATE 2907 [sym__ppIf]; STATE 2561 [sym__procAttributeNoExt];
   STATE 2564 [sym__procAttributesPp]; STATE 15242 [sym_procAttribute];
   STATE 1727 [aux_sym__declProc_repeat1]; ACTIONS 12409 [anon_sym_LBRACK];
   ACTIONS 1484 [aux_sym_ppUsesBlock_token1]; ACTIONS 3 [sym__space];
   ACTIONS 5 [sym_ppDirective]; ACTIONS 3 [sym_comment]; ACTIONS 1016 [sym_kDefault;
   sym_kNodefault]; ACTIONS 11641 [sym_kDispId]; ACTIONS 1477 [sym_kGeneric; sym_kOperator];
   ACTIONS 11643 [sym_kPublic]; ACTIONS 1016 [sym_kStatic; sym_kVirtual; sym_kAbstract;
   sym_kDynamic; sym_kOverride; sym_kOverload; sym_kReintroduce; sym_kStdcall; sym_kCdecl;
   sym_kCppdecl; sym_kPascal; sym_kRegister; sym_kMwpascal]; ACTIONS 11645 [sym_kMessage];
   ACTIONS 11647 [sym_kDeprecated]; ACTIONS 1016 [sym_kExperimental; sym_kPlatform;
   sym_kUnimplemented; sym_kCvar]; ACTIONS 11649 [sym_kExport]; ACTIONS 1016 [sym_kFar;
   sym_kNear; sym_kSafecall; sym_kAssembler; sym_kNostackframe; sym_kInterrupt; sym_kNoreturn;
   sym_kIocheck; sym_kLocal; sym_kHardfloat; sym_kSoftfloat; sym_kMs_abi_default;
   sym_kMs_abi_cdecl; sym_kSaveregisters; sym_kSysv_abi_default; sym_kSysv_abi_cdecl;
   sym_kVectorcall; sym_kVarargs; sym_kWinapi]; ACTIONS 11651 [sym_kAlias];
   ACTIONS 1477 [sym_kClass; sym_kConst; sym_kConstructor; sym_kDestructor; sym_kEnd;
   sym_kExports; sym_kFinalization; sym_kFunction; sym_kImplementation; sym_kInitialization];
   ACTIONS 1016 [sym_kInline]; ACTIONS 1477 [sym_kInterface; sym_kLabel; sym_kProcedure;
   sym_kProperty; sym_kResourcestring; sym_kThreadvar; sym_kType; sym_kUses; sym_kVar]].

(** State 1721. *)
Definition ts_parse_table_1721 : parse_row :=
  [STATE 2907 [sym__ppIf]; STATE 2561 [sym__procAttributeNoExt];
   STATE 2564 [sym__procAttributesPp]; STATE 15242 [sym_procAttribute];
   STATE 1728 [aux_sym__declProc_repeat1]; ACTIONS 12412 [anon_sym_LBRACK];
   ACTIONS 1515 [aux_sym_ppUsesBlock_token1]; ACTIONS 3 [sym__space];
   ACTIONS 5 [sym_ppDirective]; ACTIONS 3 [sym_comment]; ACTIONS 1016 [sym_kDefault;
   sym_kNodefault]; ACTIONS 11641 [sym_kDispId]; ACTIONS 1508 [sym_kGeneric; sym_kOperator];
   ACTIONS 11643 [sym_kPublic]; ACTIONS 1016 [sym_kStatic; sym_kVirtual; sym_kAbstract;
   sym_kDynamic; sym_kOverride; sym_kOverload; sym_kReintroduce; sym_kStdcall; sym_kCdecl;
   sym_kCppdecl; sym_kPascal; sym_kRegister; sym_kMwpascal]; ACTIONS 11645 [sym_kMessage];
   ACTIONS 11647 [sym_kDeprecated]; ACTIONS 1016 [sym_kExperimental; sym_kPlatform;
   sym_kUnimplemented; sym_kCvar]; ACTIONS 11649 [sym_kExport]; ACTIONS 1016 [sym_kFar;
   sym_kNear; sym_kSafecall; sym_kAssembler; sym_kNostackframe; sym_kInterrupt; sym_kNoreturn;
   sym_kIocheck; sym_kLocal; sym_kHardfloat; sym_kSoftfloat; sym_kMs_abi_default;
   sym_kMs_abi_cdecl; sym_kSaveregisters; sym_kSysv_abi_default; sym_kSysv_abi_cdecl;
   sym_kVectorcall; sym_kVarargs; sym_kWinapi]; ACTIONS 11651 [sym_kAlias];
   ACTIONS 1508 [sym_kClass; sym_kConst; sym_kConstructor; sym_kDestructor; sym_kEnd;
   sym_kExports; sym_kFinalization; sym_kFunction; sym_kImplementation; sym_kInitialization];
   ACTIONS 1016 [sym_kInline]; ACTIONS 1508 [sym_kInterface; sym_kLabel; sym_kProcedure;
   sym_kProperty; sym_kResourcestring; sym_kThreadvar; sym_kType; sym_kUses; sym_kVar]].

(** State 1722. *)
Definition ts_parse_table_1722 : parse_row :=
  [STATE 2907 [sym__ppIf]; STATE 2561 [sym__procAttributeNoExt];
   STATE 2564 [sym__procAttributesPp]; STATE 15242 [sym_procAttribute];
   STATE 1730 [aux_sym__declProc_repeat1]; ACTIONS 12415 [anon_sym_LBRACK];
   ACTIONS 1546 [aux_sym_ppUsesBlock_token1]; ACTIONS 3 [sym__space];
   ACTIONS 5 [sym_ppDirective]; ACTIONS 3 [sym_comment]; ACTIONS 1016 [sym_kDefault;
   sym_kNodefault]; ACTIONS 11641 [sym_kDispId]; ACTIONS 1539 [sym_kGeneric; sym_kOperator];
   ACTIONS 11643 [sym_kPublic]; ACTIONS 1016 [sym_kStatic; sym_kVirtual; sym_kAbstract;
   sym_kDynamic; sym_kOverride; sym_kOverload; sym_kReintroduce; sym_kStdcall; sym_kCdecl;
   sym_kCppdecl; sym_kPascal; sym_kRegister; sym_kMwpascal]; ACTIONS 11645 [sym_kMessage];
   ACTIONS 11647 [sym_kDeprecated]; ACTIONS 1016 [sym_kExperimental; sym_kPlatform;
   sym_kUnimplemented; sym_kCvar]; ACTIONS 11649 [sym_kExport]; ACTIONS 1016 [sym_kFar;
   sym_kNear; sym_kSafecall; sym_kAssembler; sym_kNostackframe; sym_kInterrupt; sym_kNoreturn;
   sym_kIocheck; sym_kLocal; sym_kHardfloat; sym_kSoftfloat; sym_kMs_abi_default;
   sym_kMs_abi_cdecl; sym_kSaveregisters; sym_kSysv_abi_default; sym_kSysv_abi_cdecl;
   sym_kVectorcall; sym_kVarargs; sym_kWinapi]; ACTIONS 11651 [sym_kAlias];
   ACTIONS 1539 [sym_kClass; sym_kConst; sym_kConstructor; sym_kDestructor; sym_kEnd;
   sym_kExports; sym_kFinalization; sym_kFunction; sym_kImplementation; sym_kInitialization];
   ACTIONS 1016 [sym_kInline]; ACTIONS 1539 [sym_kInterface; sym_kLabel; sym_kProcedure;
   sym_kProperty; sym_kResourcestring; sym_kThreadvar; sym_kType; sym_kUses; sym_kVar]].

(** State 1723. *)
Definition ts_parse_table_1723 : parse_row :=
  [STATE 2907 [sym__ppIf]; STATE 2561 [sym__procAttributeNoExt];
   STATE 2564 [sym__procAttributesPp]; STATE 15242 [sym_procAttribute];
   STATE 1716 [aux_sym__declProc_repeat1]; ACTIONS 12418 [anon_sym_LBRACK];
   ACTIONS 1579 [aux_sym_ppUsesBlock_token1]; ACTIONS 3 [sym__space];
   ACTIONS 5 [sym_ppDirective]; ACTIONS 3 [sym_comment]; ACTIONS 1016 [sym_kDefault;
   sym_kNodefault]; ACTIONS 11641 [sym_kDispId]; ACTIONS 1572 [sym_kGeneric; sym_kOperator];
   ACTIONS 11643 [sym_kPublic]; ACTIONS 1016 [sym_kStatic; sym_kVirtual; sym_kAbstract;
   sym_kDynamic; sym_kOverride; sym_kOverload; sym_kReintroduce; sym_kStdcall; sym_kCdecl;
   sym_kCppdecl; sym_kPascal; sym_kRegister; sym_kMwpascal]; ACTIONS 11645 [sym_kMessage];
   ACTIONS 11647 [sym_kDeprecated]; ACTIONS 1016 [sym_kExperimental; sym_kPlatform;
   sym_kUnimplemented; sym_kCvar]; ACTIONS 11649 [sym_kExport]; ACTIONS 1016 [sym_kFar;
   sym_kNear; sym_kSafecall; sym_kAssembler; sym_kNostackframe; sym_kInterrupt; sym_kNoreturn;
   sym_kIocheck; sym_kLocal; sym_kHardfloat; sym_kSoftfloat; sym_kMs_abi_default;
   sym_kMs_abi_cdecl; sym_kSaveregisters; sym_kSysv_abi_default; sym_kSysv_abi_cdecl;
   sym_kVectorcall; sym_kVarargs; sym_kWinapi]; ACTIONS 11651 [sym_kAlias];
   ACTIONS 1572 [sym_kClass; sym_kConst; sym_kConstructor; sym_kDestructor; sym_kEnd;
   sym_kExports; sym_kFinalization; sym_kFunction; sym_kImplementation; sym_kInitialization];
   ACTIONS 1016 [sym_kInline]; ACTIONS 1572 [sym_kInterface; sym_kLabel; sym_kProcedure;
   sym_kProperty; sym_kResourcestring; sym_kThreadvar; sym_kType; sym_kUses; sym_kVar]].

(** State 1724. *)
Definition ts_parse_table_1724 : parse_row :=
  [STATE 2907 [sym__ppIf]; STATE 2561 [sym__procAttributeNoExt];
   STATE 2564 [sym__procAttributesPp]; STATE 15242 [sym_procAttribute];
   STATE 1734 [aux_sym__declProc_repeat1]; ACTIONS 12421 [anon_sym_LBRACK];
   ACTIONS 1624 [aux_sym_ppUsesBlock_token1]; ACTIONS 3 [sym__space];
   ACTIONS 5 [sym_ppDirective]; ACTIONS 3 [sym_comment]; ACTIONS 1016 [sym_kDefault;
   sym_kNodefault]; ACTIONS 11641 [sym_kDispId]; ACTIONS 1617 [sym_kGeneric; sym_kOperator];
   ACTIONS 11643 [sym_kPublic]; ACTIONS 1016 [sym_kStatic; sym_kVirtual; sym_kAbstract;
   sym_kDynamic; sym_kOverride; sym_kOverload; sym_kReintroduce; sym_kStdcall; sym_kCdecl;
   sym_kCppdecl; sym_kPascal; sym_kRegister; sym_kMwpascal]; ACTIONS 11645 [sym_kMessage];
   ACTIONS 11647 [sym_kDeprecated]; ACTIONS 1016 [sym_kExperimental; sym_kPlatform;
   sym_kUnimplemented; sym_kCvar]; ACTIONS 11649 [sym_kExport]; ACTIONS 1016 [sym_kFar;
   sym_kNear; sym_kSafecall; sym_kAssembler; sym_kNostackframe; sym_kInterrupt; sym_kNoreturn;
   sym_kIocheck; sym_kLocal; sym_kHardfloat; sym_kSoftfloat; sym_kMs_abi_default;
   sym_kMs_abi_cdecl; sym_kSaveregisters; sym_kSysv_abi_default; sym_kSysv_abi_cdecl;
   sym_kVectorcall; sym_kVarargs; sym_kWinapi]; ACTIONS 11651 [sym_kAlias];
   ACTIONS 1617 [sym_kClass; sym_kConst; sym_kConstructor; sym_kDestructor; sym_kEnd;
   sym_kExports; sym_kFinalization; sym_kFunction; sym_kImplementation; sym_kInitialization];
   ACTIONS 1016 [sym_kInline]; ACTIONS 1617 [sym_kInterface; sym_kLabel; sym_kProcedure;
   sym_kProperty; sym_kResourcestring; sym_kThreadvar; sym_kType; sym_kUses; sym_kVar]].

(** State 1725. *)
Definition ts_parse_table_1725 : parse_row :=
  [STATE 2907 [sym__ppIf]; STATE 2561 [sym__procAttributeNoExt];
   STATE 2564 [sym__procAttributesPp]; STATE 15242 [sym_procAttribute];
   STATE 1735 [aux_sym__declProc_repeat1]; ACTIONS 12424 [anon_sym_LBRACK];
   ACTIONS 1655 [aux_sym_ppUsesBlock_token1]; ACTIONS 3 [sym__space];
   ACTIONS 5 [sym_ppDirective]; ACTIONS 3 [sym_comment]; ACTIONS 1016 [sym_kDefault;
   sym_kNodefault]; ACTIONS 11641 [sym_kDispId]; ACTIONS 1648 [sym_kGeneric; sym_kOperator];
   ACTIONS 11643 [sym_kPublic]; ACTIONS 1016 [sym_kStatic; sym_kVirtual; sym_kAbstract;
   sym_kDynamic; sym_kOverride; sym_kOverload; sym_kReintroduce; sym_kStdcall; sym_kCdecl;
   sym_kCppdecl; sym_kPascal; sym_kRegister; sym_kMwpascal]; ACTIONS 11645 [sym_kMessage];
   ACTIONS 11647 [sym_kDeprecated]; ACTIONS 1016 [sym_kExperimental; sym_kPlatform;
   sym_kUnimplemented; sym_kCvar]; ACTIONS 11649 [sym_kExport]; ACTIONS 1016 [sym_kFar;
   sym_kNear; sym_kSafecall; sym_kAssembler; sym_kNostackframe; sym_kInterrupt; sym_kNoreturn;
   sym_kIocheck; sym_kLocal; sym_kHardfloat; sym_kSoftfloat; sym_kMs_abi_default;
   sym_kMs_abi_cdecl; sym_kSaveregisters; sym_kSysv_abi_default; sym_kSysv_abi_cdecl;
   sym_kVectorcall; sym_kVarargs; sym_kWinapi]; ACTIONS 11651 [sym_kAlias];
   ACTIONS 1648 [sym_kClass; sym_kConst; sym_kConstructor; sym_kDestructor; sym_kEnd;
   sym_kExports; sym_kFinalization; sym_kFunction; sym_kImplementation; sym_kInitialization];
   ACTIONS 1016 [sym_kInline]; ACTIONS 1648 [sym_kInterface; sym_kLabel; sym_kProcedure;
   sym_kProperty; sym_kResourcestring; sym_kThreadvar; sym_kType; sym_kUses; sym_kVar]].

(** State 1726. *)
Definition ts_parse_table_1726 : parse_row :=
  [STATE 2907 [sym__ppIf]; STATE 2561 [sym__procAttributeNoExt];
   STATE 2564 [sym__procAttributesPp]; STATE 15242 [sym_procAttribute];
   STATE 1737 [aux_sym__declProc_repeat1]; ACTIONS 12427 [anon_sym_LBRACK];
   ACTIONS 1734 [aux_sym_ppUsesBlock_token1]; ACTIONS 3 [sym__space];
   ACTIONS 5 [sym_ppDirective]; ACTIONS 3 [sym_comment]; ACTIONS 1016 [sym_kDefault;
   sym_kNodefault]; ACTIONS 11641 [sym_kDispId]; ACTIONS 1727 [sym_kGeneric; sym_kOperator];
   ACTIONS 11643 [sym_kPublic]; ACTIONS 1016 [sym_kStatic; sym_kVirtual; sym_kAbstract;
   sym_kDynamic; sym_kOverride; sym_kOverload; sym_kReintroduce; sym_kStdcall; sym_kCdecl;
   sym_kCppdecl; sym_kPascal; sym_kRegister; sym_kMwpascal]; ACTIONS 11645 [sym_kMessage];
   ACTIONS 11647 [sym_kDeprecated]; ACTIONS 1016 [sym_kExperimental; sym_kPlatform;
   sym_kUnimplemented; sym_kCvar]; ACTIONS 11649 [sym_kExport]; ACTIONS 1016 [sym_kFar;
   sym_kNear; sym_kSafecall; sym_kAssembler; sym_kNostackframe; sym_kInterrupt; sym_kNoreturn;
   sym_kIocheck; sym_kLocal; sym_kHardfloat; sym_kSoftfloat; sym_kMs_abi_default;
   sym_kMs_abi_cdecl; sym_kSaveregisters; sym_kSysv_abi_default; sym_kSysv_abi_cdecl;
   sym_kVectorcall; sym_kVarargs; sym_kWinapi]; ACTIONS 11651 [sym_kAlias];
   ACTIONS 1727 [sym_kClass; sym_kConst; sym_kConstructor; sym_kDestructor; sym_kEnd;
   sym_kExports; sym_kFinalization; sym_kFunction; sym_kImplementation; sym_kInitialization];
   ACTIONS 1016 [sym_kInline]; ACTIONS 1727 [sym_kInterface; sym_kLabel; sym_kProcedure;
   sym_kProperty; sym_kResourcestring; sym_kThreadvar; sym_kType; sym_kUses; sym_kVar]].

(** State 1727. *)
Definition ts_parse_table_1727 : parse_row :=
  [STATE 2907 [sym__ppIf]; STATE 2561 [sym__procAttributeNoExt];
   STATE 2564 [sym__procAttributesPp]; STATE 15242 [sym_procAttribute];
   STATE 1716 [aux_sym__declProc_repeat1]; ACTIONS 12430 [anon_sym_LBRACK];
   ACTIONS 1765 [aux_sym_ppUsesBlock_token1]; ACTIONS 3 [sym__space];
   ACTIONS 5 [sym_ppDirective]; ACTIONS 3 [sym_comment]; ACTIONS 1016 [sym_kDefault;
   sym_kNodefault]; ACTIONS 11641 [sym_kDispId]; ACTIONS 1758 [sym_kGeneric; sym_kOperator];
   ACTIONS 11643 [sym_kPublic]; ACTIONS 1016 [sym_kStatic; sym_kVirtual; sym_kAbstract;
   sym_kDynamic; sym_kOverride; sym_kOverload; sym_kReintroduce; sym_kStdcall; sym_kCdecl;
   sym_kCppdecl; sym_kPascal; sym_kRegister; sym_kMwpascal]; ACTIONS 11645 [sym_kMessage];
   ACTIONS 11647 [sym_kDeprecated]; ACTIONS 1016 [sym_kExperimental; sym_kPlatform;
   sym_kUnimplemented; sym_kCvar]; ACTIONS 11649 [sym_kExport]; ACTIONS 1016 [sym_kFar;
   sym_kNear; sym_kSafecall; sym_kAssembler; sym_kNostackframe; sym_kInterrupt; sym_kNoreturn;
   sym_kIocheck; sym_kLocal; sym_kHardfloat; sym_kSoftfloat; sym_kMs_abi_default;
   sym_kMs_abi_cdecl; sym_kSaveregisters; sym_kSysv_abi_default; sym_kSysv_abi_cdecl;
   sym_kVectorcall; sym_kVarargs; sym_kWinapi]; ACTIONS 11651 [sym_kAlias];
   ACTIONS 1758 [sym_kClass; sym_kConst; sym_kConstructor; sym_kDestructor; sym_kEnd;
   sym_kExports; sym_kFinalization; sym_kFunction; sym_kImplementation; sym_kInitialization];
   ACTIONS 1016 [sym_kInline]; ACTIONS 1758 [sym_kInterface; sym_kLabel; sym_kProcedure;
   sym_kProperty; sym_kResourcestring; sym_kThreadvar; sym_kType; sym_kUses; sym_kVar]].

(** State 1728. *)
Definition ts_parse_table_1728 : parse_row :=
  [STATE 2907 [sym__ppIf]; STATE 2561 [sym__procAttributeNoExt];
   STATE 2564 [sym__procAttributesPp]; STATE 15242 [sym_procAttribute];
   STATE 1716 [aux_sym__declProc_repeat1]; ACTIONS 12433 [anon_sym_LBRACK];
   ACTIONS 1798 [aux_sym_ppUsesBlock_token1]; ACTIONS 3 [sym__space];
   ACTIONS 5 [sym_ppDirective]; ACTIONS 3 [sym_comment]; ACTIONS 1016 [sym_kDefault;
   sym_kNodefault]; ACTIONS 11641 [sym_kDispId]; ACTIONS 1791 [sym_kGeneric; sym_kOperator];
   ACTIONS 11643 [sym_kPublic]; ACTIONS 1016 [sym_kStatic; sym_kVirtual; sym_kAbstract;
   sym_kDynamic; sym_kOverride; sym_kOverload; sym_kReintroduce; sym_kStdcall; sym_kCdecl;
   sym_kCppdecl; sym_kPascal; sym_kRegister; sym_kMwpascal]; ACTIONS 11645 [sym_kMessage];
   ACTIONS 11647 [sym_kDeprecated]; ACTIONS 1016 [sym_kExperimental; sym_kPlatform;
   sym_kUnimplemented; sym_kCvar]; ACTIONS 11649 [sym_kExport]; ACTIONS 1016 [sym_kFar;
   sym_kNear; sym_kSafecall; sym_kAssembler; sym_kNostackframe; sym_kInterrupt; sym_kNoreturn;
   sym_kIocheck; sym_kLocal; sym_kHardfloat; sym_kSoftfloat; sym_kMs_abi_default;
   sym_kMs_abi_cdecl; sym_kSaveregisters; sym_kSysv_abi_default; sym_kSysv_abi_cdecl;
   sym_kVectorcall; sym_kVarargs; sym_kWinapi]; ACTIONS 11651 [sym_kAlias];
   ACTIONS 1791 [sym_kClass; sym_kConst; sym_kConstructor; sym_kDestructor; sym_kEnd;
   sym_kExports; sym_kFinalization; sym_kFunction; sym_kImplementation; sym_kInitialization];
   ACTIONS 1016 [sym_kInline]; ACTIONS 1791 [sym_kInterface; sym_kLabel; sym_kProcedure;
   sym_kProperty; sym_kResourcestring; sym_kThreadvar; sym_kType; sym_kUses; sym_kVar]].

(** State 1729. *)
Definition ts_parse_table_1729 : parse_row :=
  [STATE 2907 [sym__ppIf]; STATE 2561 [sym__procAttributeNoExt];
   STATE 2564 [sym__procAttributesPp]; STATE 15242 [sym_procAttribute];
   STATE 1740 [aux_sym__declProc_repeat1]; ACTIONS 12436 [anon_sym_LBRACK];
   ACTIONS 1843 [aux_sym_ppUsesBlock_token1]; ACTIONS 3 [sym__space];
   ACTIONS 5 [sym_ppDirective]; ACTIONS 3 [sym_comment]; ACTIONS 1016 [sym_kDefault;
   sym_kNodefault]; ACTIONS 11641 [sym_kDispId]; ACTIONS 1836 [sym_kGeneric; sym_kOperator];
   ACTIONS 11643 [sym_kPublic]; ACTIONS 1016 [sym_kStatic; sym_kVirtual; sym_kAbstract;
   sym_kDynamic; sym_kOverride; sym_kOverload; sym_kReintroduce; sym_kStdcall; sym_kCdecl;
   sym_kCppdecl; sym_kPascal; sym_kRegister; sym_kMwpascal]; ACTIONS 11645 [sym_kMessage];
   ACTIONS 11647 [sym_kDeprecated]; ACTIONS 1016 [sym_kExperimental; sym_kPlatform;
   sym_kUnimplemented; sym_kCvar]; ACTIONS 11649 [sym_kExport]; ACTIONS 1016 [sym_kFar;
   sym_kNear; sym_kSafecall; sym_kAssembler; sym_kNostackframe; sym_kInterrupt; sym_kNoreturn;
   sym_kIocheck; sym_kLocal; sym_kHardfloat; sym_kSoftfloat; sym_kMs_abi_default;
   sym_kMs_abi_cdecl; sym_kSaveregisters; sym_kSysv_abi_default; sym_kSysv_abi_cdecl;
   sym_kVectorcall; sym_kVarargs; sym_kWinapi]; ACTIONS 11651 [sym_kAlias];
   ACTIONS 1836 [sym_kClass; sym_kConst; sym_kConstructor; sym_kDestructor; sym_kEnd;
   sym_kExports; sym_kFinalization; sym_kFunction; sym_kImplementation; sym_kInitialization];
   ACTIONS 1016 [sym_kInline]; ACTIONS 1836 [sym_kInterface; sym_kLabel; sym_kProcedure;
   sym_kProperty; sym_kResourcestring; sym_kThreadvar; sym_kType; sym_kUses; sym_kVar]].

(** State 1730. *)
Definition ts_parse_table_1730 : parse_row :=
  [STATE 2907 [sym__ppIf]; STATE 2561 [sym__procAttributeNoExt];
   STATE 2564 [sym__procAttributesPp]; STATE 15242 [sym_procAttribute];
   STATE 1716 [aux_sym__declProc_repeat1]; ACTIONS 12439 [anon_sym_LBRACK];
   ACTIONS 1890 [aux_sym_ppUsesBlock_token1]; ACTIONS 3 [sym__space];
   ACTIONS 5 [sym_ppDirective]; ACTIONS 3 [sym_comment]; ACTIONS 1016 [sym_kDefault;
   sym_kNodefault]; ACTIONS 11641 [sym_kDispId]; ACTIONS 1883 [sym_kGeneric; sym_kOperator];
   ACTIONS 11643 [sym_kPublic]; ACTIONS 1016 [sym_kStatic; sym_kVirtual; sym_kAbstract;
   sym_kDynamic; sym_kOverride; sym_kOverload; sym_kReintroduce; sym_kStdcall; sym_kCdecl;
   sym_kCppdecl; sym_kPascal; sym_kRegister; sym_kMwpascal]; ACTIONS 11645 [sym_kMessage];
   ACTIONS 11647 [sym_kDeprecated]; ACTIONS 1016 [sym_kExperimental; sym_kPlatform;
   sym_kUnimplemented; sym_kCvar]; ACTIONS 11649 [sym_kExport]; ACTIONS 1016 [sym_kFar;
   sym_kNear; sym_kSafecall; sym_kAssembler; sym_kNostackframe; sym_kInterrupt; sym_kNoreturn;
   sym_kIocheck; sym_kLocal; sym_kHardfloat; sym_kSoftfloat; sym_kMs_abi_default;
   sym_kMs_abi_cdecl; sym_kSaveregisters; sym_kSysv_abi_default; sym_kSysv_abi_cdecl;
   sym_kVectorcall; sym_kVarargs; sym_kWinapi]; ACTIONS 11651 [sym_kAlias];
   ACTIONS 1883 [sym_kClass; sym_kConst; sym_kConstructor; sym_kDestructor; sym_kEnd;
   sym_kExports; sym_kFinalization; sym_kFunction; sym_kImplementation; sym_kInitialization];
   ACTIONS 1016 [sym_kInline]; ACTIONS 1883 [sym_kInterface; sym_kLabel; sym_kProcedure;
   sym_kProperty; sym_kResourcestring; sym_kThreadvar; sym_kType; sym_kUses; sym_kVar]].

(** State 1731. *)
Definition ts_parse_table_1731 : parse_row :=
  [STATE 2907 [sym__ppIf]; STATE 2561 [sym__procAttributeNoExt];
   STATE 2564 [sym__procAttributesPp]; STATE 15242 [sym_procAttribute];
   STATE 1742 [aux_sym__declProc_repeat1]; ACTIONS 12442 [anon_sym_LBRACK];
   ACTIONS 1921 [aux_sym_ppUsesBlock_token1]; ACTIONS 3 [sym__space];
   ACTIONS 5 [sym_ppDirective]; ACTIONS 3 [sym_comment]; ACTIONS 1016 [sym_kDefault;
   sym_kNodefault]; ACTIONS 11641 [sym_kDispId]; ACTIONS 1914 [sym_kGeneric; sym_kOperator];
   ACTIONS 11643 [sym_kPublic]; ACTIONS 1016 [sym_kStatic; sym_kVirtual; sym_kAbstract;
   sym_kDynamic; sym_kOverride; sym_kOverload; sym_kReintroduce; sym_kStdcall; sym_kCdecl;
   sym_kCppdecl; sym_kPascal; sym_kRegister; sym_kMwpascal]; ACTIONS 11645 [sym_kMessage];
   ACTIONS 11647 [sym_kDeprecated]; ACTIONS 1016 [sym_kExperimental; sym_kPlatform;
   sym_kUnimplemented; sym_kCvar]; ACTIONS 11649 [sym_kExport]; ACTIONS 1016 [sym_kFar;
   sym_kNear; sym_kSafecall; sym_kAssembler; sym_kNostackframe; sym_kInterrupt; sym_kNoreturn;
   sym_kIocheck; sym_kLocal; sym_kHardfloat; sym_kSoftfloat; sym_kMs_abi_default;
   sym_kMs_abi_cdecl; sym_kSaveregisters; sym_kSysv_abi_default; sym_kSysv_abi_cdecl;
   sym_kVectorcall; sym_kVarargs; sym_kWinapi]; ACTIONS 11651 [sym_kAlias];
   ACTIONS 1914 [sym_kClass; sym_kConst; sym_kConstructor; sym_kDestructor; sym_kEnd;
   sym_kExports; sym_kFinalization; sym_kFunction; sym_kImplementation; sym_kInitialization];
   ACTIONS 1016 [sym_kInline]; ACTIONS 1914 [sym_kInterface; sym_kLabel; sym_kProcedure;
   sym_kProperty; sym_kResourcestring; sym_kThreadvar; sym_kType; sym_kUses; sym_kVar]].

(** State 1732. *)
Definition ts_parse_table_1732 : parse_row :=
  [STATE 2907 [sym__ppIf]; STATE 2561 [sym__procAttributeNoExt];
   STATE 2564 [sym__procAttributesPp]; STATE 15242 [sym_procAttribute];
   STATE 1743 [aux_sym__declProc_repeat1]; ACTIONS 12445 [anon_sym_LBRACK];
   ACTIONS 1954 [aux_sym_ppUsesBlock_token1]; ACTIONS 3 [sym__space];
   ACTIONS 5 [sym_ppDirective]; ACTIONS 3 [sym_comment]; ACTIONS 1016 [sym_kDefault;
   sym_kNodefault]; ACTIONS 11641 [sym_kDispId]; ACTIONS 1947 [sym_kGeneric; sym_kOperator];
   ACTIONS 11643 [sym_kPublic]; ACTIONS 1016 [sym_kStatic; sym_kVirtual; sym_kAbstract;
   sym_kDynamic; sym_kOverride; sym_kOverload; sym_kReintroduce; sym_kStdcall; sym_kCdecl;
   sym_kCppdecl; sym_kPascal; sym_kRegister; sym_kMwpascal]; ACTIONS 11645 [sym_kMessage];
   ACTIONS 11647 [sym_kDeprecated]; ACTIONS 1016 [sym_kExperimental; sym_kPlatform;
   sym_kUnimplemented; sym_kCvar]; ACTIONS 11649 [sym_kExport]; ACTIONS 1016 [sym_kFar;
   sym_kNear; sym_kSafecall; sym_kAssembler; sym_kNostackframe; sym_kInterrupt; sym_kNoreturn;
   sym_kIocheck; sym_kLocal; sym_kHardfloat; sym_kSoftfloat; sym_kMs_abi_default;
   sym_kMs_abi_cdecl; sym_kSaveregisters; sym_kSysv_abi_default; sym_kSysv_abi_cdecl;
   sym_kVectorcall; sym_kVarargs; sym_kWinapi]; ACTIONS 11651 [sym_kAlias];
   ACTIONS 1947 [sym_kClass; sym_kConst; sym_kConstructor; sym_kDestructor; sym_kEnd;
   sym_kExports; sym_kFinalization; sym_kFunction; sym_kImplementation; sym_kInitialization];
   ACTIONS 1016 [sym_kInline]; ACTIONS 1947 [sym_kInterface; sym_kLabel; sym_kProcedure;
   sym_kProperty; sym_kResourcestring; sym_kThreadvar; sym_kType; sym_kUses; sym_kVar]].

(** State 1733. *)
Definition ts_parse_table_1733 : parse_row :=
  [STATE 2907 [sym__ppIf]; STATE 2561 [sym__procAttributeNoExt];
   STATE 2564 [sym__procAttributesPp]; STATE 15242 [sym_procAttribute];
   STATE 1745 [aux_sym__declProc_repeat1]; ACTIONS 12448 [anon_sym_LBRACK];
   ACTIONS 1999 [aux_sym_ppUsesBlock_token1]; ACTIONS 3 [sym__space];
   ACTIONS 5 [sym_ppDirective]; ACTIONS 3 [sym_comment]; ACTIONS 1016 [sym_kDefault;
   sym_kNodefault]; ACTIONS 11641 [sym_kDispId]; ACTIONS 1992 [sym_kGeneric; sym_kOperator];
   ACTIONS 11643 [sym_kPublic]; ACTIONS 1016 [sym_kStatic; sym_kVirtual; sym_kAbstract;
   sym_kDynamic; sym_kOverride; sym_kOverload; sym_kReintroduce; sym_kStdcall; sym_kCdecl;
   sym_kCppdecl; sym_kPascal; sym_kRegister; sym_kMwpascal]; ACTIONS 11645 [sym_kMessage];
   ACTIONS 11647 [sym_kDeprecated]; ACTIONS 1016 [sym_kExperimental; sym_kPlatform;
   sym_kUnimplemented; sym_kCvar]; ACTIONS 11649 [sym_kExport]; ACTIONS 1016 [sym_kFar;
   sym_kNear; sym_kSafecall; sym_kAssembler; sym_kNostackframe; sym_kInterrupt; sym_kNoreturn;
   sym_kIocheck; sym_kLocal; sym_kHardfloat; sym_kSoftfloat; sym_kMs_abi_default;
   sym_kMs_abi_cdecl; sym_kSaveregisters; sym_kSysv_abi_default; sym_kSysv_abi_cdecl;
   sym_kVectorcall; sym_kVarargs; sym_kWinapi]; ACTIONS 11651 [sym_kAlias];
   ACTIONS 1992 [sym_kClass; sym_kConst; sym_kConstructor; sym_kDestructor; sym_kEnd;
   sym_kExports; sym_kFinalization; sym_kFunction; sym_kImplementation; sym_kInitialization];
   ACTIONS 1016 [sym_kInline]; ACTIONS 1992 [sym_kInterface; sym_kLabel; sym_kProcedure;
   sym_kProperty; sym_kResourcestring; sym_kThreadvar; sym_kType; sym_kUses; sym_kVar]].

(** State 1734. *)
Definition ts_parse_table_1734 : parse_row :=
  [STATE 2907 [sym__ppIf]; STATE 2561 [sym__procAttributeNoExt];
   STATE 2564 [sym__procAttributesPp]; STATE 15242 [sym_procAttribute];
   STATE 1716 [aux_sym__declProc_repeat1]; ACTIONS 12451 [anon_sym_LBRACK];
   ACTIONS 2030 [aux_sym_ppUsesBlock_token1]; ACTIONS 3 [sym__space];
   ACTIONS 5 [sym_ppDirective]; ACTIONS 3 [sym_comment]; ACTIONS 1016 [sym_kDefault;
   sym_kNodefault]; ACTIONS 11641 [sym_kDispId]; ACTIONS 2023 [sym_kGeneric; sym_kOperator];
   ACTIONS 11643 [sym_kPublic]; ACTIONS 1016 [sym_kStatic; sym_kVirtual; sym_kAbstract;
   sym_kDynamic; sym_kOverride; sym_kOverload; sym_kReintroduce; sym_kStdcall; sym_kCdecl;
   sym_kCppdecl; sym_kPascal; sym_kRegister; sym_kMwpascal]; ACTIONS 11645 [sym_kMessage];
   ACTIONS 11647 [sym_kDeprecated]; ACTIONS 1016 [sym_kExperimental; sym_kPlatform;
   sym_kUnimplemented; sym_kCvar]; ACTIONS 11649 [sym_kExport]; ACTIONS 1016 [sym_kFar;
   sym_kNear; sym_kSafecall; sym_kAssembler; sym_kNostackframe; sym_kInterrupt; sym_kNoreturn;
   sym_kIocheck; sym_kLocal; sym_kHardfloat; sym_kSoftfloat; sym_kMs_abi_default;
   sym_kMs_abi_cdecl; sym_kSaveregisters; sym_kSysv_abi_default; sym_kSysv_abi_cdecl;
   sym_kVectorcall; sym_kVarargs; sym_kWinapi]; ACTIONS 11651 [sym_kAlias];
   ACTIONS 2023 [sym_kClass; sym_kConst; sym_kConstructor; sym_kDestructor; sym_kEnd;
   sym_kExports; sym_kFinalization; sym_kFunction; sym_kImplementation; sym_kInitialization];
   ACTIONS 1016 [sym_kInline]; ACTIONS 2023 [sym_kInterface; sym_kLabel; sym_kProcedure;
   sym_kProperty; sym_kResourcestring; sym_kThreadvar; sym_kType; sym_kUses; sym_kVar]].

(** State 1735. *)
Definition ts_parse_table_1735 : parse_row :=
  [STATE 2907 [sym__ppIf]; STATE 2561 [sym__procAttributeNoExt];
   STATE 2564 [sym__procAttributesPp]; STATE 15242 [sym_procAttribute];
   STATE 1716 [aux_sym__declProc_repeat1]; ACTIONS 12454 [anon_sym_LBRACK];
   ACTIONS 2063 [aux_sym_ppUsesBlock_token1]; ACTIONS 3 [sym__space];
   ACTIONS 5 [sym_ppDirective]; ACTIONS 3 [sym_comment]; ACTIONS 1016 [sym_kDefault;
   sym_kNodefault]; ACTIONS 11641 [sym_kDispId]; ACTIONS 2056 [sym_kGeneric; sym_kOperator];
   ACTIONS 11643 [sym_kPublic]; ACTIONS 1016 [sym_kStatic; sym_kVirtual; sym_kAbstract;
   sym_kDynamic; sym_kOverride; sym_kOverload; sym_kReintroduce; sym_kStdcall; sym_kCdecl;
   sym_kCppdecl; sym_kPascal; sym_kRegister; sym_kMwpascal]; ACTIONS 11645 [sym_kMessage];
   ACTIONS 11647 [sym_kDeprecated]; ACTIONS 1016 [sym_kExperimental; sym_kPlatform;
   sym_kUnimplemented; sym_kCvar]; ACTIONS 11649 [sym_kExport]; ACTIONS 1016 [sym_kFar;
   sym_kNear; sym_kSafecall; sym_kAssembler; sym_kNostackframe; sym_kInterrupt; sym_kNoreturn;
   sym_kIocheck; sym_kLocal; sym_kHardfloat; sym_kSoftfloat; sym_kMs_abi_default;
   sym_kMs_abi_cdecl; sym_kSaveregisters; sym_kSysv_abi_default; sym_kSysv_abi_cdecl;
   sym_kVectorcall; sym_kVarargs; sym_kWinapi]; ACTIONS 11651 [sym_kAlias];
   ACTIONS 2056 [sym_kClass; sym_kConst; sym_kConstructor; sym_kDestructor; sym_kEnd;
   sym_kExports; sym_kFinalization; sym_kFunction; sym_kImplementation; sym_kInitialization];
   ACTIONS 1016 [sym_kInline]; ACTIONS 2056 [sym_kInterface; sym_kLabel; sym_kProcedure;
   sym_kProperty; sym_kResourcestring; sym_kThreadvar; sym_kType; sym_kUses; sym_kVar]].

(** State 1736. *)
Definition ts_parse_table_1736 : parse_row :=
  [STATE 2907 [sym__ppIf]; STATE 2561 [sym__procAttributeNoExt];
   STATE 2564 [sym__procAttributesPp]; STATE 15242 [sym_procAttribute];
   STATE 1748 [aux_sym__declProc_repeat1]; ACTIONS 12457 [anon_sym_LBRACK];
   ACTIONS 2108 [aux_sym_ppUsesBlock_token1]; ACTIONS 3 [sym__space];
   ACTIONS 5 [sym_ppDirective]; ACTIONS 3 [sym_comment]; ACTIONS 1016 [sym_kDefault;
   sym_kNodefault]; ACTIONS 11641 [sym_kDispId]; ACTIONS 2101 [sym_kGeneric; sym_kOperator];
   ACTIONS 11643 [sym_kPublic]; ACTIONS 1016 [sym_kStatic; sym_kVirtual; sym_kAbstract;
   sym_kDynamic; sym_kOverride; sym_kOverload; sym_kReintroduce; sym_kStdcall; sym_kCdecl;
   sym_kCppdecl; sym_kPascal; sym_kRegister; sym_kMwpascal]; ACTIONS 11645 [sym_kMessage];
   ACTIONS 11647 [sym_kDeprecated]; ACTIONS 1016 [sym_kExperimental; sym_kPlatform;
   sym_kUnimplemented; sym_kCvar]; ACTIONS 11649 [sym_kExport]; ACTIONS 1016 [sym_kFar;
   sym_kNear; sym_kSafecall; sym_kAssembler; sym_kNostackframe; sym_kInterrupt; sym_kNoreturn;
   sym_kIocheck; sym_kLocal; sym_kHardfloat; sym_kSoftfloat; sym_kMs_abi_default;
   sym_kMs_abi_cdecl; sym_kSaveregisters; sym_kSysv_abi_default; sym_kSysv_abi_cdecl;
   sym_kVectorcall; sym_kVarargs; sym_kWinapi]; ACTIONS 11651 [sym_kAlias];
   ACTIONS 2101 [sym_kClass; sym_kConst; sym_kConstructor; sym_kDestructor; sym_kEnd;
   sym_kExports; sym_kFinalization; sym_kFunction; sym_kImplementation; sym_kInitialization];
   ACTIONS 1016 [sym_kInline]; ACTIONS 2101 [sym_kInterface; sym_kLabel; sym_kProcedure;
   sym_kProperty; sym_kResourcestring; sym_kThreadvar; sym_kType; sym_kUses; sym_kVar]].

(** State 1737. *)
Definition ts_parse_table_1737 : parse_row :=
  [STATE 2907 [sym__ppIf]; STATE 2561 [sym__procAttributeNoExt];
   STATE 2564 [sym__procAttributesPp]; STATE 15242 [sym_procAttribute];
   STATE 1716 [aux_sym__declProc_repeat1]; ACTIONS 12460 [anon_sym_LBRACK];
   ACTIONS 2280 [aux_sym_ppUsesBlock_token1]; ACTIONS 3 [sym__space];
   ACTIONS 5 [sym_ppDirective]; ACTIONS 3 [sym_comment]; ACTIONS 1016 [sym_kDefault;
   sym_kNodefault]; ACTIONS 11641 [sym_kDispId]; ACTIONS 2273 [sym_kGeneric; sym_kOperator];
   ACTIONS 11643 [sym_kPublic]; ACTIONS 1016 [sym_kStatic; sym_kVirtual; sym_kAbstract;
   sym_kDynamic; sym_kOverride; sym_kOverload; sym_kReintroduce; sym_kStdcall; sym_kCdecl;
   sym_kCppdecl; sym_kPascal; sym_kRegister; sym_kMwpascal]; ACTIONS 11645 [sym_kMessage];
   ACTIONS 11647 [sym_kDeprecated]; ACTIONS 1016 [sym_kExperimental; sym_kPlatform;
   sym_kUnimplemented; sym_kCvar]; ACTIONS 11649 [sym_kExport]; ACTIONS 1016 [sym_kFar;
   sym_kNear; sym_kSafecall; sym_kAssembler; sym_kNostackframe; sym_kInterrupt; sym_kNoreturn;
   sym_kIocheck; sym_kLocal; sym_kHardfloat; sym_kSoftfloat; sym_kMs_abi_default;
   sym_kMs_abi_cdecl; sym_kSaveregisters; sym_kSysv_abi_default; sym_kSysv_abi_cdecl;
   sym_kVectorcall; sym_kVarargs; sym_kWinapi]; ACTIONS 11651 [sym_kAlias];
   ACTIONS 2273 [sym_kClass; sym_kConst; sym_kConstructor; sym_kDestructor; sym_kEnd;
   sym_kExports; sym_kFinalization; sym_kFunction; sym_kImplementation; sym_kInitialization];
   ACTIONS 1016 [sym_kInline]; ACTIONS 2273 [sym_kInterface; sym_kLabel; sym_kProcedure;
   sym_kProperty; sym_kResourcestring; sym_kThreadvar; sym_kType; sym_kUses; sym_kVar]].

(** State 1738. *)
Definition ts_parse_table_1738 : parse_row :=
  [STATE 2907 [sym__ppIf]; STATE 2561 [sym__procAttributeNoExt];
   STATE 2564 [sym__procAttributesPp]; STATE 15242 [sym_procAttribute];
   STATE 1749 [aux_sym__declProc_repeat1]; ACTIONS 12463 [anon_sym_LBRACK];
   ACTIONS 2325 [aux_sym_ppUsesBlock_token1]; ACTIONS 3 [sym__space];
   ACTIONS 5 [sym_ppDirective]; ACTIONS 3 [sym_comment]; ACTIONS 1016 [sym_kDefault;
   sym_kNodefault]; ACTIONS 11641 [sym_kDispId]; ACTIONS 2318 [sym_kGeneric; sym_kOperator];
   ACTIONS 11643 [sym_kPublic]; ACTIONS 1016 [sym_kStatic; sym_kVirtual; sym_kAbstract;
   sym_kDynamic; sym_kOverride; sym_kOverload; sym_kReintroduce; sym_kStdcall; sym_kCdecl;
   sym_kCppdecl; sym_kPascal; sym_kRegister; sym_kMwpascal]; ACTIONS 11645 [sym_kMessage];
   ACTIONS 11647 [sym_kDeprecated]; ACTIONS 1016 [sym_kExperimental; sym_kPlatform;
   sym_kUnimplemented; sym_kCvar]; ACTIONS 11649 [sym_kExport]; ACTIONS 1016 [sym_kFar;
   sym_kNear; sym_kSafecall; sym_kAssembler; sym_kNostackframe; sym_kInterrupt; sym_kNoreturn;
   sym_kIocheck; sym_kLocal; sym_kHardfloat; sym_kSoftfloat; sym_kMs_abi_default;
   sym_kMs_abi_cdecl; sym_kSaveregisters; sym_kSysv_abi_default; sym_kSysv_abi_cdecl;
   sym_kVectorcall; sym_kVarargs; sym_kWinapi]; ACTIONS 11651 [sym_kAlias];
   ACTIONS 2318 [sym_kClass; sym_kConst; sym_kConstructor; sym_kDestructor; sym_kEnd;
   sym_kExports; sym_kFinalization; sym_kFunction; sym_kImplementation; sym_kInitialization];
   ACTIONS 1016 [sym_kInline]; ACTIONS 2318 [sym_kInterface; sym_kLabel; sym_kProcedure;
   sym_kProperty; sym_kResourcestring; sym_kThreadvar; sym_kType; sym_kUses; sym_kVar]].

(** State 1739. *)
Definition ts_parse_table_1739 : parse_row :=
  [STATE 2907 [sym__ppIf]; STATE 2561 [sym__procAttributeNoExt];
   STATE 2564 [sym__procAttributesPp]; STATE 15242 [sym_procAttribute];
   STATE 1750 [aux_sym__declProc_repeat1]; ACTIONS 12466 [anon_sym_LBRACK];
   ACTIONS 2358 [aux_sym_ppUsesBlock_token1]; ACTIONS 3 [sym__space];
   ACTIONS 5 [sym_ppDirective]; ACTIONS 3 [sym_comment]; ACTIONS 1016 [sym_kDefault;
   sym_kNodefault]; ACTIONS 11641 [sym_kDispId]; ACTIONS 2351 [sym_kGeneric; sym_kOperator];
   ACTIONS 11643 [sym_kPublic]; ACTIONS 1016 [sym_kStatic; sym_kVirtual; sym_kAbstract;
   sym_kDynamic; sym_kOverride; sym_kOverload; sym_kReintroduce; sym_kStdcall; sym_kCdecl;
   sym_kCppdecl; sym_kPascal; sym_kRegister; sym_kMwpascal]; ACTIONS 11645 [sym_kMessage];
   ACTIONS 11647 [sym_kDeprecated]; ACTIONS 1016 [sym_kExperimental; sym_kPlatform;
   sym_kUnimplemented; sym_kCvar]; ACTIONS 11649 [sym_kExport]; ACTIONS 1016 [sym_kFar;
   sym_kNear; sym_kSafecall; sym_kAssembler; sym_kNostackframe; sym_kInterrupt; sym_kNoreturn;
   sym_kIocheck; sym_kLocal; sym_kHardfloat; sym_kSoftfloat; sym_kMs_abi_default;
   sym_kMs_abi_cdecl; sym_kSaveregisters; sym_kSysv_abi_default; sym_kSysv_abi_cdecl;
   sym_kVectorcall; sym_kVarargs; sym_kWinapi]; ACTIONS 11651 [sym_kAlias];
   ACTIONS 2351 [sym_kClass; sym_kConst; sym_kConstructor; sym_kDestructor; sym_kEnd;
   sym_kExports; sym_kFinalization; sym_kFunction; sym_kImplementation; sym_kInitialization];
   ACTIONS 1016 [sym_kInline]; ACTIONS 2351 [sym_kInterface; sym_kLabel; sym_kProcedure;
   sym_kProperty; sym_kResourcestring; sym_kThreadvar; sym_kType; sym_kUses; sym_kVar]].

(** State 1740. *)
Definition ts_parse_table_1740 : parse_row :=
  [STATE 2907 [sym__ppIf]; STATE 2561 [sym__procAttributeNoExt];
   STATE 2564 [sym__procAttributesPp]; STATE 15242 [sym_procAttribute];
   STATE 1716 [aux_sym__declProc_repeat1]; ACTIONS 12469 [anon_sym_LBRACK];
   ACTIONS 2403 [aux_sym_ppUsesBlock_token1]; ACTIONS 3 [sym__space];
   ACTIONS 5 [sym_ppDirective]; ACTIONS 3 [sym_comment]; ACTIONS 1016 [sym_kDefault;
   sym_kNodefault]; ACTIONS 11641 [sym_kDispId]; ACTIONS 2396 [sym_kGeneric; sym_kOperator];
   ACTIONS 11643 [sym_kPublic]; ACTIONS 1016 [sym_kStatic; sym_kVirtual; sym_kAbstract;
   sym_kDynamic; sym_kOverride; sym_kOverload; sym_kReintroduce; sym_kStdcall; sym_kCdecl;
   sym_kCppdecl; sym_kPascal; sym_kRegister; sym_kMwpascal]; ACTIONS 11645 [sym_kMessage];
   ACTIONS 11647 [sym_kDeprecated]; ACTIONS 1016 [sym_kExperimental; sym_kPlatform;
   sym_kUnimplemented; sym_kCvar]; ACTIONS 11649 [sym_kExport]; ACTIONS 1016 [sym_kFar;
   sym_kNear; sym_kSafecall; sym_kAssembler; sym_kNostackframe; sym_kInterrupt; sym_kNoreturn;
   sym_kIocheck; sym_kLocal; sym_kHardfloat; sym_kSoftfloat; sym_kMs_abi_default;
   sym_kMs_abi_cdecl; sym_kSaveregisters; sym_kSysv_abi_default; sym_kSysv_abi_cdecl;
   sym_kVectorcall; sym_kVarargs; sym_kWinapi]; ACTIONS 11651 [sym_kAlias];
   ACTIONS 2396 [sym_kClass; sym_kConst; sym_kConstructor; sym_kDestructor; sym_kEnd;
   sym_kExports; sym_kFinalization; sym_kFunction; sym_kImplementation; sym_kInitialization];
   ACTIONS 1016 [sym_kInline]; ACTIONS 2396 [sym_kInterface; sym_kLabel; sym_kProcedure;
   sym_kProperty; sym_kResourcestring; sym_kThreadvar; sym_kType; sym_kUses; sym_kVar]].

(** State 1741. *)
Definition ts_parse_table_1741 : parse_row :=
  [STATE 2907 [sym__ppIf]; STATE 2561 [sym__procAttributeNoExt];
   STATE 2564 [sym__procAttributesPp]; STATE 15242 [sym_procAttribute];
   STATE 1752 [aux_sym__declProc_repeat1]; ACTIONS 12472 [anon_sym_LBRACK];
   ACTIONS 2486 [aux_sym_ppUsesBlock_token1]; ACTIONS 3 [sym__space];
   ACTIONS 5 [sym_ppDirective]; ACTIONS 3 [sym_comment]; ACTIONS 1016 [sym_kDefault;
   sym_kNodefault]; ACTIONS 11641 [sym_kDispId]; ACTIONS 2479 [sym_kGeneric; sym_kOperator];
   ACTIONS 11643 [sym_kPublic]; ACTIONS 1016 [sym_kStatic; sym_kVirtual; sym_kAbstract;
   sym_kDynamic; sym_kOverride; sym_kOverload; sym_kReintroduce; sym_kStdcall; sym_kCdecl;
   sym_kCppdecl; sym_kPascal; sym_kRegister; sym_kMwpascal]; ACTIONS 11645 [sym_kMessage];
   ACTIONS 11647 [sym_kDeprecated]; ACTIONS 1016 [sym_kExperimental; sym_kPlatform;
   sym_kUnimplemented; sym_kCvar]; ACTIONS 11649 [sym_kExport]; ACTIONS 1016 [sym_kFar;
   sym_kNear; sym_kSafecall; sym_kAssembler; sym_kNostackframe; sym_kInterrupt; sym_kNoreturn;
   sym_kIocheck; sym_kLocal; sym_kHardfloat; sym_kSoftfloat; sym_kMs_abi_default;
   sym_kMs_abi_cdecl; sym_kSaveregisters; sym_kSysv_abi_default; sym_kSysv_abi_cdecl;
   sym_kVectorcall; sym_kVarargs; sym_kWinapi]; ACTIONS 11651 [sym_kAlias];
   ACTIONS 2479 [sym_kClass; sym_kConst; sym_kConstructor; sym_kDestructor; sym_kEnd;
   sym_kExports; sym_kFinalization; sym_kFunction; sym_kImplementation; sym_kInitialization];
   ACTIONS 1016 [sym_kInline]; ACTIONS 2479 [sym_kInterface; sym_kLabel; sym_kProcedure;
   sym_kProperty; sym_kResourcestring; sym_kThreadvar; sym_kType; sym_kUses; sym_kVar]].

(** State 1742. *)
Definition ts_parse_table_1742 : parse_row :=
  [STATE 2907 [sym__ppIf]; STATE 2561 [sym__procAttributeNoExt];
   STATE 2564 [sym__procAttributesPp]; STATE 15242 [sym_procAttribute];
   STATE 1716 [aux_sym__declProc_repeat1]; ACTIONS 12475 [anon_sym_LBRACK];
   ACTIONS 2517 [aux_sym_ppUsesBlock_token1]; ACTIONS 3 [sym__space];
   ACTIONS 5 [sym_ppDirective]; ACTIONS 3 [sym_comment]; ACTIONS 1016 [sym_kDefault;
   sym_kNodefault]; ACTIONS 11641 [sym_kDispId]; ACTIONS 2510 [sym_kGeneric; sym_kOperator];
   ACTIONS 11643 [sym_kPublic]; ACTIONS 1016 [sym_kStatic; sym_kVirtual; sym_kAbstract;
   sym_kDynamic; sym_kOverride; sym_kOverload; sym_kReintroduce; sym_kStdcall; sym_kCdecl;
   sym_kCppdecl; sym_kPascal; sym_kRegister; sym_kMwpascal]; ACTIONS 11645 [sym_kMessage];
   ACTIONS 11647 [sym_kDeprecated]; ACTIONS 1016 [sym_kExperimental; sym_kPlatform;
   sym_kUnimplemented; sym_kCvar]; ACTIONS 11649 [sym_kExport]; ACTIONS 1016 [sym_kFar;
   sym_kNear; sym_kSafecall; sym_kAssembler; sym_kNostackframe; sym_kInterrupt; sym_kNoreturn;
   sym_kIocheck; sym_kLocal; sym_kHardfloat; sym_kSoftfloat; sym_kMs_abi_default;
   sym_kMs_abi_cdecl; sym_kSaveregisters; sym_kSysv_abi_default; sym_kSysv_abi_cdecl;
   sym_kVectorcall; sym_kVarargs; sym_kWinapi]; ACTIONS 11651 [sym_kAlias];
   ACTIONS 2510 [sym_kClass; sym_kConst; sym_kConstructor; sym_kDestructor; sym_kEnd;
   sym_kExports; sym_kFinalization; sym_kFunction; sym_kImplementation; sym_kInitialization];
   ACTIONS 1016 [sym_kInline]; ACTIONS 2510 [sym_kInterface; sym_kLabel; sym_kProcedure;
   sym_kProperty; sym_kResourcestring; sym_kThreadvar; sym_kType; sym_kUses; sym_kVar]].

(** State 1743. *)
Definition ts_parse_table_1743 : parse_row :=
  [STATE 2907 [sym__ppIf]; STATE 2561 [sym__procAttributeNoExt];
   STATE 2564 [sym__procAttributesPp]; STATE 15242 [sym_procAttribute];
   STATE 1716 [aux_sym__declProc_repeat1]; ACTIONS 12478 [anon_sym_LBRACK];
   ACTIONS 2550 [aux_sym_ppUsesBlock_token1]; ACTIONS 3 [sym__space];
   ACTIONS 5 [sym_ppDirective]; ACTIONS 3 [sym_comment]; ACTIONS 1016 [sym_kDefault;
   sym_kNodefault]; ACTIONS 11641 [sym_kDispId]; ACTIONS 2543 [sym_kGeneric; sym_kOperator];
   ACTIONS 11643 [sym_kPublic]; ACTIONS 1016 [sym_kStatic; sym_kVirtual; sym_kAbstract;
   sym_kDynamic; sym_kOverride; sym_kOverload; sym_kReintroduce; sym_kStdcall; sym_kCdecl;
   sym_kCppdecl; sym_kPascal; sym_kRegister; sym_kMwpascal]; ACTIONS 11645 [sym_kMessage];
   ACTIONS 11647 [sym_kDeprecated]; ACTIONS 1016 [sym_kExperimental; sym_kPlatform;
   sym_kUnimplemented; sym_kCvar]; ACTIONS 11649 [sym_kExport]; ACTIONS 1016 [sym_kFar;
   sym_kNear; sym_kSafecall; sym_kAssembler; sym_kNostackframe; sym_kInterrupt; sym_kNoreturn;
   sym_kIocheck; sym_kLocal; sym_kHardfloat; sym_kSoftfloat; sym_kMs_abi_default;
   sym_kMs_abi_cdecl; sym_kSaveregisters; sym_kSysv_abi_default; sym_kSysv_abi_cdecl;
   sym_kVectorcall; sym_kVarargs; sym_kWinapi]; ACTIONS 11651 [sym_kAlias];
   ACTIONS 2543 [sym_kClass; sym_kConst; sym_kConstructor; sym_kDestructor; sym_kEnd;
   sym_kExports; sym_kFinalization; sym_kFunction; sym_kImplementation; sym_kInitialization];
   ACTIONS 1016 [sym_kInline]; ACTIONS 2543 [sym_kInterface; sym_kLabel; sym_kProcedure;
   sym_kProperty; sym_kResourcestring; sym_kThreadvar; sym_kType; sym_kUses; sym_kVar]].

(** State 1744. *)
Definition ts_parse_table_1744 : parse_row :=
  [STATE 2907 [sym__ppIf]; STATE 2561 [sym__procAttributeNoExt];
   STATE 2564 [sym__procAttributesPp]; STATE 15242 [sym_procAttribute];
   STATE 1754 [aux_sym__declProc_repeat1]; ACTIONS 12481 [anon_sym_LBRACK];
   ACTIONS 2597 [aux_sym_ppUsesBlock_token1]; ACTIONS 3 [sym__space];
   ACTIONS 5 [sym_ppDirective]; ACTIONS 3 [sym_comment]; ACTIONS 1016 [sym_kDefault;
   sym_kNodefault]; ACTIONS 11641 [sym_kDispId]; ACTIONS 2590 [sym_kGeneric; sym_kOperator];
   ACTIONS 11643 [sym_kPublic]; ACTIONS 1016 [sym_kStatic; sym_kVirtual; sym_kAbstract;
   sym_kDynamic; sym_kOverride; sym_kOverload; sym_kReintroduce; sym_kStdcall; sym_kCdecl;
   sym_kCppdecl; sym_kPascal; sym_kRegister; sym_kMwpascal]; ACTIONS 11645 [sym_kMessage];
   ACTIONS 11647 [sym_kDeprecated]; ACTIONS 1016 [sym_kExperimental; sym_kPlatform;
   sym_kUnimplemented; sym_kCvar]; ACTIONS 11649 [sym_kExport]; ACTIONS 1016 [sym_kFar;
   sym_kNear; sym_kSafecall; sym_kAssembler; sym_kNostackframe; sym_kInterrupt; sym_kNoreturn;
   sym_kIocheck; sym_kLocal; sym_kHardfloat; sym_kSoftfloat; sym_kMs_abi_default;
   sym_kMs_abi_cdecl; sym_kSaveregisters; sym_kSysv_abi_default; sym_kSysv_abi_cdecl;
   sym_kVectorcall; sym_kVarargs; sym_kWinapi]; ACTIONS 11651 [sym_kAlias];
   ACTIONS 2590 [sym_kClass; sym_kConst; sym_kConstructor; sym_kDestructor; sym_kEnd;
   sym_kExports; sym_kFinalization; sym_kFunction; sym_kImplementation; sym_kInitialization];
   ACTIONS 1016 [sym_kInline]; ACTIONS 2590 [sym_kInterface; sym_kLabel; sym_kProcedure;
   sym_kProperty; sym_kResourcestring; sym_kThreadvar; sym_kType; sym_kUses; sym_kVar]].

(** State 1745. *)
Definition ts_parse_table_1745 : parse_row :=
  [STATE 2907 [sym__ppIf]; STATE 2561 [sym__procAttributeNoExt];
   STATE 2564 [sym__procAttributesPp]; STATE 15242 [sym_procAttribute];
   STATE 1716 [aux_sym__declProc_repeat1]; ACTIONS 12484 [anon_sym_LBRACK];
   ACTIONS 2628 [aux_sym_ppUsesBlock_token1]; ACTIONS 3 [sym__space];
   ACTIONS 5 [sym_ppDirective]; ACTIONS 3 [sym_comment]; ACTIONS 1016 [sym_kDefault;
   sym_kNodefault]; ACTIONS 11641 [sym_kDispId]; ACTIONS 2621 [sym_kGeneric; sym_kOperator];
   ACTIONS 11643 [sym_kPublic]; ACTIONS 1016 [sym_kStatic; sym_kVirtual; sym_kAbstract;
   sym_kDynamic; sym_kOverride; sym_kOverload; sym_kReintroduce; sym_kStdcall; sym_kCdecl;
   sym_kCppdecl; sym_kPascal; sym_kRegister; sym_kMwpascal]; ACTIONS 11645 [sym_kMessage];
   ACTIONS 11647 [sym_kDeprecated]; ACTIONS 1016 [sym_kExperimental; sym_kPlatform;
   sym_kUnimplemented; sym_kCvar]; ACTIONS 11649 [sym_kExport]; ACTIONS 1016 [sym_kFar;
   sym_kNear; sym_kSafecall; sym_kAssembler; sym_kNostackframe; sym_kInterrupt; sym_kNoreturn;
   sym_kIocheck; sym_kLocal; sym_kHardfloat; sym_kSoftfloat; sym_kMs_abi_default;
   sym_kMs_abi_cdecl; sym_kSaveregisters; sym_kSysv_abi_default; sym_kSysv_abi_cdecl;
   sym_kVectorcall; sym_kVarargs; sym_kWinapi]; ACTIONS 11651 [sym_kAlias];
   ACTIONS 2621 [sym_kClass; sym_kConst; sym_kConstructor; sym_kDestructor; sym_kEnd;
   sym_kExports; sym_kFinalization; sym_kFunction; sym_kImplementation; sym_kInitialization];
   ACTIONS 1016 [sym_kInline]; ACTIONS 2621 [sym_kInterface; sym_kLabel; sym_kProcedure;
   sym_kProperty; sym_kResourcestring; sym_kThreadvar; sym_kType; sym_kUses; sym_kVar]].

(** State 1746. *)
Definition ts_parse_table_1746 : parse_row :=
  [STATE 2907 [sym__ppIf]; STATE 2561 [sym__procAttributeNoExt];
   STATE 2564 [sym__procAttributesPp]; STATE 15242 [sym_procAttribute];
   STATE 1755 [aux_sym__declProc_repeat1]; ACTIONS 12487 [anon_sym_LBRACK];
   ACTIONS 2659 [aux_sym_ppUsesBlock_token1]; ACTIONS 3 [sym__space];
   ACTIONS 5 [sym_ppDirective]; ACTIONS 3 [sym_comment]; ACTIONS 1016 [sym_kDefault;
   sym_kNodefault]; ACTIONS 11641 [sym_kDispId]; ACTIONS 2652 [sym_kGeneric; sym_kOperator];
   ACTIONS 11643 [sym_kPublic]; ACTIONS 1016 [sym_kStatic; sym_kVirtual; sym_kAbstract;
   sym_kDynamic; sym_kOverride; sym_kOverload; sym_kReintroduce; sym_kStdcall; sym_kCdecl;
   sym_kCppdecl; sym_kPascal; sym_kRegister; sym_kMwpascal]; ACTIONS 11645 [sym_kMessage];
   ACTIONS 11647 [sym_kDeprecated]; ACTIONS 1016 [sym_kExperimental; sym_kPlatform;
   sym_kUnimplemented; sym_kCvar]; ACTIONS 11649 [sym_kExport]; ACTIONS 1016 [sym_kFar;
   sym_kNear; sym_kSafecall; sym_kAssembler; sym_kNostackframe; sym_kInterrupt; sym_kNoreturn;
   sym_kIocheck; sym_kLocal; sym_kHardfloat; sym_kSoftfloat; sym_kMs_abi_default;
   sym_kMs_abi_cdecl; sym_kSaveregisters; sym_kSysv_abi_default; sym_kSysv_abi_cdecl;
   sym_kVectorcall; sym_kVarargs; sym_kWinapi]; ACTIONS 11651 [sym_kAlias];
   ACTIONS 2652 [sym_kClass; sym_kConst; sym_kConstructor; sym_kDestructor; sym_kEnd;
   sym_kExports; sym_kFinalization; sym_kFunction; sym_kImplementation; sym_kInitialization];
   ACTIONS 1016 [sym_kInline]; ACTIONS 2652 [sym_kInterface; sym_kLabel; sym_kProcedure;
   sym_kProperty; sym_kResourcestring; sym_kThreadvar; sym_kType; sym_kUses; sym_kVar]].

(** State 1747. *)
Definition ts_parse_table_1747 : parse_row :=
  [STATE 2907 [sym__ppIf]; STATE 2561 [sym__procAttributeNoExt];
   STATE 2564 [sym__procAttributesPp]; STATE 15242 [sym_procAttribute];
   STATE 1756 [aux_sym__declProc_repeat1]; ACTIONS 12490 [anon_sym_LBRACK];
   ACTIONS 2692 [aux_sym_ppUsesBlock_token1]; ACTIONS 3 [sym__space];
   ACTIONS 5 [sym_ppDirective]; ACTIONS 3 [sym_comment]; ACTIONS 1016 [sym_kDefault;
   sym_kNodefault]; ACTIONS 11641 [sym_kDispId]; ACTIONS 2685 [sym_kGeneric; sym_kOperator];
   ACTIONS 11643 [sym_kPublic]; ACTIONS 1016 [sym_kStatic; sym_kVirtual; sym_kAbstract;
   sym_kDynamic; sym_kOverride; sym_kOverload; sym_kReintroduce; sym_kStdcall; sym_kCdecl;
   sym_kCppdecl; sym_kPascal; sym_kRegister; sym_kMwpascal]; ACTIONS 11645 [sym_kMessage];
   ACTIONS 11647 [sym_kDeprecated]; ACTIONS 1016 [sym_kExperimental; sym_kPlatform;
   sym_kUnimplemented; sym_kCvar]; ACTIONS 11649 [sym_kExport]; ACTIONS 1016 [sym_kFar;
   sym_kNear; sym_kSafecall; sym_kAssembler; sym_kNostackframe; sym_kInterrupt; sym_kNoreturn;
   sym_kIocheck; sym_kLocal; sym_kHardfloat; sym_kSoftfloat; sym_kMs_abi_default;
   sym_kMs_abi_cdecl; sym_kSaveregisters; sym_kSysv_abi_default; sym_kSysv_abi_cdecl;
   sym_kVectorcall; sym_kVarargs; sym_kWinapi]; ACTIONS 11651 [sym_kAlias];
   ACTIONS 2685 [sym_kClass; sym_kConst; sym_kConstructor; sym_kDestructor; sym_kEnd;
   sym_kExports; sym_kFinalization; sym_kFunction; sym_kImplementation; sym_kInitialization];
   ACTIONS 1016 [sym_kInline]; ACTIONS 2685 [sym_kInterface; sym_kLabel; sym_kProcedure;
   sym_kProperty; sym_kResourcestring; sym_kThreadvar; sym_kType; sym_kUses; sym_kVar]].

(** State 1748. *)
Definition ts_parse_table_1748 : parse_row :=
  [STATE 2907 [sym__ppIf]; STATE 2561 [sym__procAttributeNoExt];
   STATE 2564 [sym__procAttributesPp]; STATE 15242 [sym_procAttribute];
   STATE 1716 [aux_sym__declProc_repeat1]; ACTIONS 12493 [anon_sym_LBRACK];
   ACTIONS 2739 [aux_sym_ppUsesBlock_token1]; ACTIONS 3 [sym__space];
   ACTIONS 5 [sym_ppDirective]; ACTIONS 3 [sym_comment]; ACTIONS 1016 [sym_kDefault;
   sym_kNodefault]; ACTIONS 11641 [sym_kDispId]; ACTIONS 2732 [sym_kGeneric; sym_kOperator];
   ACTIONS 11643 [sym_kPublic]; ACTIONS 1016 [sym_kStatic; sym_kVirtual; sym_kAbstract;
   sym_kDynamic; sym_kOverride; sym_kOverload; sym_kReintroduce; sym_kStdcall; sym_kCdecl;
   sym_kCppdecl; sym_kPascal; sym_kRegister; sym_kMwpascal]; ACTIONS 11645 [sym_kMessage];
   ACTIONS 11647 [sym_kDeprecated]; ACTIONS 1016 [sym_kExperimental; sym_kPlatform;
   sym_kUnimplemented; sym_kCvar]; ACTIONS 11649 [sym_kExport]; ACTIONS 1016 [sym_kFar;
   sym_kNear; sym_kSafecall; sym_kAssembler; sym_kNostackframe; sym_kInterrupt; sym_kNoreturn;
   sym_kIocheck; sym_kLocal; sym_kHardfloat; sym_kSoftfloat; sym_kMs_abi_default;
   sym_kMs_abi_cdecl; sym_kSaveregisters; sym_kSysv_abi_default; sym_kSysv_abi_cdecl;
   sym_kVectorcall; sym_kVarargs; sym_kWinapi]; ACTIONS 11651 [sym_kAlias];
   ACTIONS 2732 [sym_kClass; sym_kConst; sym_kConstructor; sym_kDestructor; sym_kEnd;
   sym_kExports; sym_kFinalization; sym_kFunction; sym_kImplementation; sym_kInitialization];
   ACTIONS 1016 [sym_kInline]; ACTIONS 2732 [sym_kInterface; sym_kLabel; sym_kProcedure;
   sym_kProperty; sym_kResourcestring; sym_kThreadvar; sym_kType; sym_kUses; sym_kVar]].

(** State 1749. *)
Definition ts_parse_table_1749 : parse_row :=
  [STATE 2907 [sym__ppIf]; STATE 2561 [sym__procAttributeNoExt];
   STATE 2564 [sym__procAttributesPp]; STATE 15242 [sym_procAttribute];
   STATE 1716 [aux_sym__declProc_repeat1]; ACTIONS 12496 [anon_sym_LBRACK];
   ACTIONS 2848 [aux_sym_ppUsesBlock_token1]; ACTIONS 3 [sym__space];
   ACTIONS 5 [sym_ppDirective]; ACTIONS 3 [sym_comment]; ACTIONS 1016 [sym_kDefault;
   sym_kNodefault]; ACTIONS 11641 [sym_kDispId]; ACTIONS 2841 [sym_kGeneric; sym_kOperator];
   ACTIONS 11643 [sym_kPublic]; ACTIONS 1016 [sym_kStatic; sym_kVirtual; sym_kAbstract;
   sym_kDynamic; sym_kOverride; sym_kOverload; sym_kReintroduce; sym_kStdcall; sym_kCdecl;
   sym_kCppdecl; sym_kPascal; sym_kRegister; sym_kMwpascal]; ACTIONS 11645 [sym_kMessage];
   ACTIONS 11647 [sym_kDeprecated]; ACTIONS 1016 [sym_kExperimental; sym_kPlatform;
   sym_kUnimplemented; sym_kCvar]; ACTIONS 11649 [sym_kExport]; ACTIONS 1016 [sym_kFar;
   sym_kNear; sym_kSafecall; sym_kAssembler; sym_kNostackframe; sym_kInterrupt; sym_kNoreturn;
   sym_kIocheck; sym_kLocal; sym_kHardfloat; sym_kSoftfloat; sym_kMs_abi_default;
   sym_kMs_abi_cdecl; sym_kSaveregisters; sym_kSysv_abi_default; sym_kSysv_abi_cdecl;
   sym_kVectorcall; sym_kVarargs; sym_kWinapi]; ACTIONS 11651 [sym_kAlias];
   ACTIONS 2841 [sym_kClass; sym_kConst; sym_kConstructor; sym_kDestructor; sym_kEnd;
   sym_kExports; sym_kFinalization; sym_kFunction; sym_kImplementation; sym_kInitialization];
   ACTIONS 1016 [sym_kInline]; ACTIONS 2841 [sym_kInterface; sym_kLabel; sym_kProcedure;
   sym_kProperty; sym_kResourcestring; sym_kThreadvar; sym_kType; sym_kUses; sym_kVar]].

(** State 1750. *)
Definition ts_parse_table_1750 : parse_row :=
  [STATE 2907 [sym__ppIf]; STATE 2561 [sym__procAttributeNoExt];
   STATE 2564 [sym__procAttributesPp]; STATE 15242 [sym_procAttribute];
   STATE 1716 [aux_sym__declProc_repeat1]; ACTIONS 12499 [anon_sym_LBRACK];
   ACTIONS 2881 [aux_sym_ppUsesBlock_token1]; ACTIONS 3 [sym__space];
   ACTIONS 5 [sym_ppDirective]; ACTIONS 3 [sym_comment]; ACTIONS 1016 [sym_kDefault;
   sym_kNodefault]; ACTIONS 11641 [sym_kDispId]; ACTIONS 2874 [sym_kGeneric; sym_kOperator];
   ACTIONS 11643 [sym_kPublic]; ACTIONS 1016 [sym_kStatic; sym_kVirtual; sym_kAbstract;
   sym_kDynamic; sym_kOverride; sym_kOverload; sym_kReintroduce; sym_kStdcall; sym_kCdecl;
   sym_kCppdecl; sym_kPascal; sym_kRegister; sym_kMwpascal]; ACTIONS 11645 [sym_kMessage];
   ACTIONS 11647 [sym_kDeprecated]; ACTIONS 1016 [sym_kExperimental; sym_kPlatform;
   sym_kUnimplemented; sym_kCvar]; ACTIONS 11649 [sym_kExport]; ACTIONS 1016 [sym_kFar;
   sym_kNear; sym_kSafecall; sym_kAssembler; sym_kNostackframe; sym_kInterrupt; sym_kNoreturn;
   sym_kIocheck; sym_kLocal; sym_kHardfloat; sym_kSoftfloat; sym_kMs_abi_default;
   sym_kMs_abi_cdecl; sym_kSaveregisters; sym_kSysv_abi_default; sym_kSysv_abi_cdecl;
   sym_kVectorcall; sym_kVarargs; sym_kWinapi]; ACTIONS 11651 [sym_kAlias];
   ACTIONS 2874 [sym_kClass; sym_kConst; sym_kConstructor; sym_kDestructor; sym_kEnd;
   sym_kExports; sym_kFinalization; sym_kFunction; sym_kImplementation; sym_kInitialization];
   ACTIONS 1016 [sym_kInline]; ACTIONS 2874 [sym_kInterface; sym_kLabel; sym_kProcedure;
   sym_kProperty; sym_kResourcestring; sym_kThreadvar; sym_kType; sym_kUses; sym_kVar]].

(** State 1751. *)
Definition ts_parse_table_1751 : parse_row :=
  [STATE 2907 [sym__ppIf]; STATE 2561 [sym__procAttributeNoExt];
   STATE 2564 [sym__procAttributesPp]; STATE 15242 [sym_procAttribute];
   STATE 1758 [aux_sym__declProc_repeat1]; ACTIONS 12502 [anon_sym_LBRACK];
   ACTIONS 2914 [aux_sym_ppUsesBlock_token1]; ACTIONS 3 [sym__space];
   ACTIONS 5 [sym_ppDirective]; ACTIONS 3 [sym_comment]; ACTIONS 1016 [sym_kDefault;
   sym_kNodefault]; ACTIONS 11641 [sym_kDispId]; ACTIONS 2907 [sym_kGeneric; sym_kOperator];
   ACTIONS 11643 [sym_kPublic]; ACTIONS 1016 [sym_kStatic; sym_kVirtual; sym_kAbstract;
   sym_kDynamic; sym_kOverride; sym_kOverload; sym_kReintroduce; sym_kStdcall; sym_kCdecl;
   sym_kCppdecl; sym_kPascal; sym_kRegister; sym_kMwpascal]; ACTIONS 11645 [sym_kMessage];
   ACTIONS 11647 [sym_kDeprecated]; ACTIONS 1016 [sym_kExperimental; sym_kPlatform;
   sym_kUnimplemented; sym_kCvar]; ACTIONS 11649 [sym_kExport]; ACTIONS 1016 [sym_kFar;
   sym_kNear; sym_kSafecall; sym_kAssembler; sym_kNostackframe; sym_kInterrupt; sym_kNoreturn;
   sym_kIocheck; sym_kLocal; sym_kHardfloat; sym_kSoftfloat; sym_kMs_abi_default;
   sym_kMs_abi_cdecl; sym_kSaveregisters; sym_kSysv_abi_default; sym_kSysv_abi_cdecl;
   sym_kVectorcall; sym_kVarargs; sym_kWinapi]; ACTIONS 11651 [sym_kAlias];
   ACTIONS 2907 [sym_kClass; sym_kConst; sym_kConstructor; sym_kDestructor; sym_kEnd;
   sym_kExports; sym_kFinalization; sym_kFunction; sym_kImplementation; sym_kInitialization];
   ACTIONS 1016 [sym_kInline]; ACTIONS 2907 [sym_kInterface; sym_kLabel; sym_kProcedure;
   sym_kProperty; sym_kResourcestring; sym_kThreadvar; sym_kType; sym_kUses; sym_kVar]].

(** State 1752. *)
Definition ts_parse_table_1752 : parse_row :=
  [STATE 2907 [sym__ppIf]; STATE 2561 [sym__procAttributeNoExt];
   STATE 2564 [sym__procAttributesPp]; STATE 15242 [sym_procAttribute];
   STATE 1716 [aux_sym__declProc_repeat1]; ACTIONS 12505 [anon_sym_LBRACK];
   ACTIONS 2975 [aux_sym_ppUsesBlock_token1]; ACTIONS 3 [sym__space];
   ACTIONS 5 [sym_ppDirective]; ACTIONS 3 [sym_comment]; ACTIONS 1016 [sym_kDefault;
   sym_kNodefault]; ACTIONS 11641 [sym_kDispId]; ACTIONS 2968 [sym_kGeneric; sym_kOperator];
   ACTIONS 11643 [sym_kPublic]; ACTIONS 1016 [sym_kStatic; sym_kVirtual; sym_kAbstract;
   sym_kDynamic; sym_kOverride; sym_kOverload; sym_kReintroduce; sym_kStdcall; sym_kCdecl;
   sym_kCppdecl; sym_kPascal; sym_kRegister; sym_kMwpascal]; ACTIONS 11645 [sym_kMessage];
   ACTIONS 11647 [sym_kDeprecated]; ACTIONS 1016 [sym_kExperimental; sym_kPlatform;
   sym_kUnimplemented; sym_kCvar]; ACTIONS 11649 [sym_kExport]; ACTIONS 1016 [sym_kFar;
   sym_kNear; sym_kSafecall; sym_kAssembler; sym_kNostackframe; sym_kInterrupt; sym_kNoreturn;
   sym_kIocheck; sym_kLocal; sym_kHardfloat; sym_kSoftfloat; sym_kMs_abi_default;
   sym_kMs_abi_cdecl; sym_kSaveregisters; sym_kSysv_abi_default; sym_kSysv_abi_cdecl;
   sym_kVectorcall; sym_kVarargs; sym_kWinapi]; ACTIONS 11651 [sym_kAlias];
   ACTIONS 2968 [sym_kClass; sym_kConst; sym_kConstructor; sym_kDestructor; sym_kEnd;
   sym_kExports; sym_kFinalization; sym_kFunction; sym_kImplementation; sym_kInitialization];
   ACTIONS 1016 [sym_kInline]; ACTIONS 2968 [sym_kInterface; sym_kLabel; sym_kProcedure;
   sym_kProperty; sym_kResourcestring; sym_kThreadvar; sym_kType; sym_kUses; sym_kVar]].

(** State 1753. *)
Definition ts_parse_table_1753 : parse_row :=
  [STATE 2907 [sym__ppIf]; STATE 2561 [sym__procAttributeNoExt];
   STATE 2564 [sym__procAttributesPp]; STATE 15242 [sym_procAttribute];
   STATE 1760 [aux_sym__declProc_repeat1]; ACTIONS 12508 [anon_sym_LBRACK];
   ACTIONS 3041 [aux_sym_ppUsesBlock_token1]; ACTIONS 3 [sym__space];
   ACTIONS 5 [sym_ppDirective]; ACTIONS 3 [sym_comment]; ACTIONS 1016 [sym_kDefault;
   sym_kNodefault]; ACTIONS 11641 [sym_kDispId]; ACTIONS 3034 [sym_kGeneric; sym_kOperator];
   ACTIONS 11643 [sym_kPublic]; ACTIONS 1016 [sym_kStatic; sym_kVirtual; sym_kAbstract;
   sym_kDynamic; sym_kOverride; sym_kOverload; sym_kReintroduce; sym_kStdcall; sym_kCdecl;
   sym_kCppdecl; sym_kPascal; sym_kRegister; sym_kMwpascal]; ACTIONS 11645 [sym_kMessage];
   ACTIONS 11647 [sym_kDeprecated]; ACTIONS 1016 [sym_kExperimental; sym_kPlatform;
   sym_kUnimplemented; sym_kCvar]; ACTIONS 11649 [sym_kExport]; ACTIONS 1016 [sym_kFar;
   sym_kNear; sym_kSafecall; sym_kAssembler; sym_kNostackframe; sym_kInterrupt; sym_kNoreturn;
   sym_kIocheck; sym_kLocal; sym_kHardfloat; sym_kSoftfloat; sym_kMs_abi_default;
   sym_kMs_abi_cdecl; sym_kSaveregisters; sym_kSysv_abi_default; sym_kSysv_abi_cdecl;
   sym_kVectorcall; sym_kVarargs; sym_kWinapi]; ACTIONS 11651 [sym_kAlias];
   ACTIONS 3034 [sym_kClass; sym_kConst; sym_kConstructor; sym_kDestructor; sym_kEnd;
   sym_kExports; sym_kFinalization; sym_kFunction; sym_kImplementation; sym_kInitialization];
   ACTIONS 1016 [sym_kInline]; ACTIONS 3034 [sym_kInterface; sym_kLabel; sym_kProcedure;
   sym_kProperty; sym_kResourcestring; sym_kThreadvar; sym_kType; sym_kUses; sym_kVar]].

(** State 1754. *)
Definition ts_parse_table_1754 : parse_row :=
  [STATE 2907 [sym__ppIf]; STATE 2561 [sym__procAttributeNoExt];
   STATE 2564 [sym__procAttributesPp]; STATE 15242 [sym_procAttribute];
   STATE 1716 [aux_sym__declProc_repeat1]; ACTIONS 12511 [anon_sym_LBRACK];
   ACTIONS 3074 [aux_sym_ppUsesBlock_token1]; ACTIONS 3 [sym__space];
   ACTIONS 5 [sym_ppDirective]; ACTIONS 3 [sym_comment]; ACTIONS 1016 [sym_kDefault;
   sym_kNodefault]; ACTIONS 11641 [sym_kDispId]; ACTIONS 3067 [sym_kGeneric; sym_kOperator];
   ACTIONS 11643 [sym_kPublic]; ACTIONS 1016 [sym_kStatic; sym_kVirtual; sym_kAbstract;
   sym_kDynamic; sym_kOverride; sym_kOverload; sym_kReintroduce; sym_kStdcall; sym_kCdecl;
   sym_kCppdecl; sym_kPascal; sym_kRegister; sym_kMwpascal]; ACTIONS 11645 [sym_kMessage];
   ACTIONS 11647 [sym_kDeprecated]; ACTIONS 1016 [sym_kExperimental; sym_kPlatform;
   sym_kUnimplemented; sym_kCvar]; ACTIONS 11649 [sym_kExport]; ACTIONS 1016 [sym_kFar;
   sym_kNear; sym_kSafecall; sym_kAssembler; sym_kNostackframe; sym_kInterrupt; sym_kNoreturn;
   sym_kIocheck; sym_kLocal; sym_kHardfloat; sym_kSoftfloat; sym_kMs_abi_default;
   sym_kMs_abi_cdecl; sym_kSaveregisters; sym_kSysv_abi_default; sym_kSysv_abi_cdecl;
   sym_kVectorcall; sym_kVarargs; sym_kWinapi]; ACTIONS 11651 [sym_kAlias];
   ACTIONS 3067 [sym_kClass; sym_kConst; sym_kConstructor; sym_kDestructor; sym_kEnd;
   sym_kExports; sym_kFinalization; sym_kFunction; sym_kImplementation; sym_kInitialization];
   ACTIONS 1016 [sym_kInline]; ACTIONS 3067 [sym_kInterface; sym_kLabel; sym_kProcedure;
   sym_kProperty; sym_kResourcestring; sym_kThreadvar; sym_kType; sym_kUses; sym_kVar]].

(** State 1755. *)
Definition ts_parse_table_1755 : parse_row :=
  [STATE 2907 [sym__ppIf]; STATE 2561 [sym__procAttributeNoExt];
   STATE 2564 [sym__procAttributesPp]; STATE 15242 [sym_procAttribute];
   STATE 1716 [aux_sym__declProc_repeat1]; ACTIONS 12514 [anon_sym_LBRACK];
   ACTIONS 3107 [aux_sym_ppUsesBlock_token1]; ACTIONS 3 [sym__space];
   ACTIONS 5 [sym_ppDirective]; ACTIONS 3 [sym_comment]; ACTIONS 1016 [sym_kDefault;
   sym_kNodefault]; ACTIONS 11641 [sym_kDispId]; ACTIONS 3100 [sym_kGeneric; sym_kOperator];
   ACTIONS 11643 [sym_kPublic]; ACTIONS 1016 [sym_kStatic; sym_kVirtual; sym_kAbstract;
   sym_kDynamic; sym_kOverride; sym_kOverload; sym_kReintroduce; sym_kStdcall; sym_kCdecl;
   sym_kCppdecl; sym_kPascal; sym_kRegister; sym_kMwpascal]; ACTIONS 11645 [sym_kMessage];
   ACTIONS 11647 [sym_kDeprecated]; ACTIONS 1016 [sym_kExperimental; sym_kPlatform;
   sym_kUnimplemented; sym_kCvar]; ACTIONS 11649 [sym_kExport]; ACTIONS 1016 [sym_kFar;
   sym_kNear; sym_kSafecall; sym_kAssembler; sym_kNostackframe; sym_kInterrupt; sym_kNoreturn;
   sym_kIocheck; sym_kLocal; sym_kHardfloat; sym_kSoftfloat; sym_kMs_abi_default;
   sym_kMs_abi_cdecl; sym_kSaveregisters; sym_kSysv_abi_default; sym_kSysv_abi_cdecl;
   sym_kVectorcall; sym_kVarargs; sym_kWinapi]; ACTIONS 11651 [sym_kAlias];
   ACTIONS 3100 [sym_kClass; sym_kConst; sym_kConstructor; sym_kDestructor; sym_kEnd;
   sym_kExports; sym_kFinalization; sym_kFunction; sym_kImplementation; sym_kInitialization];
   ACTIONS 1016 [sym_kInline]; ACTIONS 3100 [sym_kInterface; sym_kLabel; sym_kProcedure;
   sym_kProperty; sym_kResourcestring; sym_kThreadvar; sym_kType; sym_kUses; sym_kVar]].

(** State 1756. *)
Definition ts_parse_table_1756 : parse_row :=
  [STATE 2907 [sym__ppIf]; STATE 2561 [sym__procAttributeNoExt];
   STATE 2564 [sym__procAttributesPp]; STATE 15242 [sym_procAttribute];
   STATE 1716 [aux_sym__declProc_repeat1]; ACTIONS 12517 [anon_sym_LBRACK];
   ACTIONS 3140 [aux_sym_ppUsesBlock_token1]; ACTIONS 3 [sym__space];
   ACTIONS 5 [sym_ppDirective]; ACTIONS 3 [sym_comment]; ACTIONS 1016 [sym_kDefault;
   sym_kNodefault]; ACTIONS 11641 [sym_kDispId]; ACTIONS 3133 [sym_kGeneric; sym_kOperator];
   ACTIONS 11643 [sym_kPublic]; ACTIONS 1016 [sym_kStatic; sym_kVirtual; sym_kAbstract;
   sym_kDynamic; sym_kOverride; sym_kOverload; sym_kReintroduce; sym_kStdcall; sym_kCdecl;
   sym_kCppdecl; sym_kPascal; sym_kRegister; sym_kMwpascal]; ACTIONS 11645 [sym_kMessage];
   ACTIONS 11647 [sym_kDeprecated]; ACTIONS 1016 [sym_kExperimental; sym_kPlatform;
   sym_kUnimplemented; sym_kCvar]; ACTIONS 11649 [sym_kExport]; ACTIONS 1016 [sym_kFar;
   sym_kNear; sym_kSafecall; sym_kAssembler; sym_kNostackframe; sym_kInterrupt; sym_kNoreturn;
   sym_kIocheck; sym_kLocal; sym_kHardfloat; sym_kSoftfloat; sym_kMs_abi_default;
   sym_kMs_abi_cdecl; sym_kSaveregisters; sym_kSysv_abi_default; sym_kSysv_abi_cdecl;
   sym_kVectorcall; sym_kVarargs; sym_kWinapi]; ACTIONS 11651 [sym_kAlias];
   ACTIONS 3133 [sym_kClass; sym_kConst; sym_kConstructor; sym_kDestructor; sym_kEnd;
   sym_kExports; sym_kFinalization; sym_kFunction; sym_kImplementation; sym_kInitialization];
   ACTIONS 1016 [sym_kInline]; ACTIONS 3133 [sym_kInterface; sym_kLabel; sym_kProcedure;
   sym_kProperty; sym_kResourcestring; sym_kThreadvar; sym_kType; sym_kUses; sym_kVar]].

(** State 1757. *)
Definition ts_parse_table_1757 : parse_row :=
  [STATE 2907 [sym__ppIf]; STATE 2561 [sym__procAttributeNoExt];
   STATE 2564 [sym__procAttributesPp]; STATE 15242 [sym_procAttribute];
   STATE 1762 [aux_sym__declProc_repeat1]; ACTIONS 12520 [anon_sym_LBRACK];
   ACTIONS 2211 [aux_sym_ppUsesBlock_token1]; ACTIONS 3 [sym__space];
   ACTIONS 5 [sym_ppDirective]; ACTIONS 3 [sym_comment]; ACTIONS 1016 [sym_kDefault;
   sym_kNodefault]; ACTIONS 11641 [sym_kDispId]; ACTIONS 2204 [sym_kGeneric; sym_kOperator];
   ACTIONS 11643 [sym_kPublic]; ACTIONS 1016 [sym_kStatic; sym_kVirtual; sym_kAbstract;
   sym_kDynamic; sym_kOverride; sym_kOverload; sym_kReintroduce; sym_kStdcall; sym_kCdecl;
   sym_kCppdecl; sym_kPascal; sym_kRegister; sym_kMwpascal]; ACTIONS 11645 [sym_kMessage];
   ACTIONS 11647 [sym_kDeprecated]; ACTIONS 1016 [sym_kExperimental; sym_kPlatform;
   sym_kUnimplemented; sym_kCvar]; ACTIONS 11649 [sym_kExport]; ACTIONS 1016 [sym_kFar;
   sym_kNear; sym_kSafecall; sym_kAssembler; sym_kNostackframe; sym_kInterrupt; sym_kNoreturn;
   sym_kIocheck; sym_kLocal; sym_kHardfloat; sym_kSoftfloat; sym_kMs_abi_default;
   sym_kMs_abi_cdecl; sym_kSaveregisters; sym_kSysv_abi_default; sym_kSysv_abi_cdecl;
   sym_kVectorcall; sym_kVarargs; sym_kWinapi]; ACTIONS 11651 [sym_kAlias];
   ACTIONS 2204 [sym_kClass; sym_kConst; sym_kConstructor; sym_kDestructor; sym_kEnd;
   sym_kExports; sym_kFinalization; sym_kFunction; sym_kImplementation; sym_kInitialization];
   ACTIONS 1016 [sym_kInline]; ACTIONS 2204 [sym_kInterface; sym_kLabel; sym_kProcedure;
   sym_kProperty; sym_kResourcestring; sym_kThreadvar; sym_kType; sym_kUses; sym_kVar]].

(** State 1758. *)
Definition ts_parse_table_1758 : parse_row :=
  [STATE 2907 [sym__ppIf]; STATE 2561 [sym__procAttributeNoExt];
   STATE 2564 [sym__procAttributesPp]; STATE 15242 [sym_procAttribute];
   STATE 1716 [aux_sym__declProc_repeat1]; ACTIONS 12523 [anon_sym_LBRACK];
   ACTIONS 992 [aux_sym_ppUsesBlock_token1]; ACTIONS 3 [sym__space]; ACTIONS 5 [sym_ppDirective];
   ACTIONS 3 [sym_comment]; ACTIONS 1016 [sym_kDefault; sym_kNodefault];
   ACTIONS 11641 [sym_kDispId]; ACTIONS 985 [sym_kGeneric; sym_kOperator];
   ACTIONS 11643 [sym_kPublic]; ACTIONS 1016 [sym_kStatic; sym_kVirtual; sym_kAbstract;
   sym_kDynamic; sym_kOverride; sym_kOverload; sym_kReintroduce; sym_kStdcall; sym_kCdecl;
   sym_kCppdecl; sym_kPascal; sym_kRegister; sym_kMwpascal]; ACTIONS 11645 [sym_kMessage];
   ACTIONS 11647 [sym_kDeprecated]; ACTIONS 1016 [sym_kExperimental; sym_kPlatform;
   sym_kUnimplemented; sym_kCvar]; ACTIONS 11649 [sym_kExport]; ACTIONS 1016 [sym_kFar;
   sym_kNear; sym_kSafecall; sym_kAssembler; sym_kNostackframe; sym_kInterrupt; sym_kNoreturn;
   sym_kIocheck; sym_kLocal; sym_kHardfloat; sym_kSoftfloat; sym_kMs_abi_default;
   sym_kMs_abi_cdecl; sym_kSaveregisters; sym_kSysv_abi_default; sym_kSysv_abi_cdecl;
   sym_kVectorcall; sym_kVarargs; sym_kWinapi]; ACTIONS 11651 [sym_kAlias];
   ACTIONS 985 [sym_kClass; sym_kConst; sym_kConstructor; sym_kDestructor; sym_kEnd;
   sym_kExports; sym_kFinalization; sym_kFunction; sym_kImplementation; sym_kInitialization];
   ACTIONS 1016 [sym_kInline]; ACTIONS 985 [sym_kInterface; sym_kLabel; sym_kProcedure;
   sym_kProperty; sym_kResourcestring; sym_kThreadvar; sym_kType; sym_kUses; sym_kVar]].

(** State 1759. *)
Definition ts_parse_table_1759 : parse_row :=
  [STATE 2907 [sym__ppIf]; STATE 2561 [sym__procAttributeNoExt];
   STATE 2564 [sym__procAttributesPp]; STATE 15242 [sym_procAttribute];
   STATE 1716 [aux_sym__declProc_repeat1]; ACTIONS 12526 [anon_sym_LBRACK];
   ACTIONS 1025 [aux_sym_ppUsesBlock_token1]; ACTIONS 3 [sym__space];
   ACTIONS 5 [sym_ppDirective]; ACTIONS 3 [sym_comment]; ACTIONS 1016 [sym_kDefault;
   sym_kNodefault]; ACTIONS 11641 [sym_kDispId]; ACTIONS 1018 [sym_kGeneric; sym_kOperator];
   ACTIONS 11643 [sym_kPublic]; ACTIONS 1016 [sym_kStatic; sym_kVirtual; sym_kAbstract;
   sym_kDynamic; sym_kOverride; sym_kOverload; sym_kReintroduce; sym_kStdcall; sym_kCdecl;
   sym_kCppdecl; sym_kPascal; sym_kRegister; sym_kMwpascal]; ACTIONS 11645 [sym_kMessage];
   ACTIONS 11647 [sym_kDeprecated]; ACTIONS 1016 [sym_kExperimental; sym_kPlatform;
   sym_kUnimplemented; sym_kCvar]; ACTIONS 11649 [sym_kExport]; ACTIONS 1016 [sym_kFar;
   sym_kNear; sym_kSafecall; sym_kAssembler; sym_kNostackframe; sym_kInterrupt; sym_kNoreturn;
   sym_kIocheck; sym_kLocal; sym_kHardfloat; sym_kSoftfloat; sym_kMs_abi_default;
   sym_kMs_abi_cdecl; sym_kSaveregisters; sym_kSysv_abi_default; sym_kSysv_abi_cdecl;
   sym_kVectorcall; sym_kVarargs; sym_kWinapi]; ACTIONS 11651 [sym_kAlias];
   ACTIONS 1018 [sym_kClass; sym_kConst; sym_kConstructor; sym_kDestructor; sym_kEnd;
   sym_kExports; sym_kFinalization; sym_kFunction; sym_kImplementation; sym_kInitialization];
   ACTIONS 1016 [sym_kInline]; ACTIONS 1018 [sym_kInterface; sym_kLabel; sym_kProcedure;
   sym_kProperty; sym_kResourcestring; sym_kThreadvar; sym_kType; sym_kUses; sym_kVar]].

(** State 1760. *)
Definition ts_parse_table_1760 : parse_row :=
  [STATE 2907 [sym__ppIf]; STATE 2561 [sym__procAttributeNoExt];
   STATE 2564 [sym__procAttributesPp]; STATE 15242 [sym_procAttribute];
   STATE 1716 [aux_sym__declProc_repeat1]; ACTIONS 12529 [anon_sym_LBRACK];
   ACTIONS 1056 [aux_sym_ppUsesBlock_token1]; ACTIONS 3 [sym__space];
   ACTIONS 5 [sym_ppDirective]; ACTIONS 3 [sym_comment]; ACTIONS 1016 [sym_kDefault;
   sym_kNodefault]; ACTIONS 11641 [sym_kDispId]; ACTIONS 1049 [sym_kGeneric; sym_kOperator];
   ACTIONS 11643 [sym_kPublic]; ACTIONS 1016 [sym_kStatic; sym_kVirtual; sym_kAbstract;
   sym_kDynamic; sym_kOverride; sym_kOverload; sym_kReintroduce; sym_kStdcall; sym_kCdecl;
   sym_kCppdecl; sym_kPascal; sym_kRegister; sym_kMwpascal]; ACTIONS 11645 [sym_kMessage];
   ACTIONS 11647 [sym_kDeprecated]; ACTIONS 1016 [sym_kExperimental; sym_kPlatform;
   sym_kUnimplemented; sym_kCvar]; ACTIONS 11649 [sym_kExport]; ACTIONS 1016 [sym_kFar;
   sym_kNear; sym_kSafecall; sym_kAssembler; sym_kNostackframe; sym_kInterrupt; sym_kNoreturn;
   sym_kIocheck; sym_kLocal; sym_kHardfloat; sym_kSoftfloat; sym_kMs_abi_default;
   sym_kMs_abi_cdecl; sym_kSaveregisters; sym_kSysv_abi_default; sym_kSysv_abi_cdecl;
   sym_kVectorcall; sym_kVarargs; sym_kWinapi]; ACTIONS 11651 [sym_kAlias];
   ACTIONS 1049 [sym_kClass; sym_kConst; sym_kConstructor; sym_kDestructor; sym_kEnd;
   sym_kExports; sym_kFinalization; sym_kFunction; sym_kImplementation; sym_kInitialization];
   ACTIONS 1016 [sym_kInline]; ACTIONS 1049 [sym_kInterface; sym_kLabel; sym_kProcedure;
   sym_kProperty; sym_kResourcestring; sym_kThreadvar; sym_kType; sym_kUses; sym_kVar]].

(** State 1761. *)
Definition ts_parse_table_1761 : parse_row :=
  [STATE 2907 [sym__ppIf]; STATE 2561 [sym__procAttributeNoExt];
   STATE 2564 [sym__procAttributesPp]; STATE 15242 [sym_procAttribute];
   STATE 1763 [aux_sym__declProc_repeat1]; ACTIONS 12532 [anon_sym_LBRACK];
   ACTIONS 1087 [aux_sym_ppUsesBlock_token1]; ACTIONS 3 [sym__space];
   ACTIONS 5 [sym_ppDirective]; ACTIONS 3 [sym_comment]; ACTIONS 1016 [sym_kDefault;
   sym_kNodefault]; ACTIONS 11641 [sym_kDispId]; ACTIONS 1080 [sym_kGeneric; sym_kOperator];
   ACTIONS 11643 [sym_kPublic]; ACTIONS 1016 [sym_kStatic; sym_kVirtual; sym_kAbstract;
   sym_kDynamic; sym_kOverride; sym_kOverload; sym_kReintroduce; sym_kStdcall; sym_kCdecl;
   sym_kCppdecl; sym_kPascal; sym_kRegister; sym_kMwpascal]; ACTIONS 11645 [sym_kMessage];
   ACTIONS 11647 [sym_kDeprecated]; ACTIONS 1016 [sym_kExperimental; sym_kPlatform;
   sym_kUnimplemented; sym_kCvar]; ACTIONS 11649 [sym_kExport]; ACTIONS 1016 [sym_kFar;
   sym_kNear; sym_kSafecall; sym_kAssembler; sym_kNostackframe; sym_kInterrupt; sym_kNoreturn;
   sym_kIocheck; sym_kLocal; sym_kHardfloat; sym_kSoftfloat; sym_kMs_abi_default;
   sym_kMs_abi_cdecl; sym_kSaveregisters; sym_kSysv_abi_default; sym_kSysv_abi_cdecl;
   sym_kVectorcall; sym_kVarargs; sym_kWinapi]; ACTIONS 11651 [sym_kAlias];
   ACTIONS 1080 [sym_kClass; sym_kConst; sym_kConstructor; sym_kDestructor; sym_kEnd;
   sym_kExports; sym_kFinalization; sym_kFunction; sym_kImplementation; sym_kInitialization];
   ACTIONS 1016 [sym_kInline]; ACTIONS 1080 [sym_kInterface; sym_kLabel; sym_kProcedure;
   sym_kProperty; sym_kResourcestring; sym_kThreadvar; sym_kType; sym_kUses; sym_kVar]].

(** State 1762. *)
Definition ts_parse_table_1762 : parse_row :=
  [STATE 2907 [sym__ppIf]; STATE 2561 [sym__procAttributeNoExt];
   STATE 2564 [sym__procAttributesPp]; STATE 15242 [sym_procAttribute];
   STATE 1716 [aux_sym__declProc_repeat1]; ACTIONS 12535 [anon_sym_LBRACK];
   ACTIONS 1118 [aux_sym_ppUsesBlock_token1]; ACTIONS 3 [sym__space];
   ACTIONS 5 [sym_ppDirective]; ACTIONS 3 [sym_comment]; ACTIONS 1016 [sym_kDefault;
   sym_kNodefault]; ACTIONS 11641 [sym_kDispId]; ACTIONS 1111 [sym_kGeneric; sym_kOperator];
   ACTIONS 11643 [sym_kPublic]; ACTIONS 1016 [sym_kStatic; sym_kVirtual; sym_kAbstract;
   sym_kDynamic; sym_kOverride; sym_kOverload; sym_kReintroduce; sym_kStdcall; sym_kCdecl;
   sym_kCppdecl; sym_kPascal; sym_kRegister; sym_kMwpascal]; ACTIONS 11645 [sym_kMessage];
   ACTIONS 11647 [sym_kDeprecated]; ACTIONS 1016 [sym_kExperimental; sym_kPlatform;
   sym_kUnimplemented; sym_kCvar]; ACTIONS 11649 [sym_kExport]; ACTIONS 1016 [sym_kFar;
   sym_kNear; sym_kSafecall; sym_kAssembler; sym_kNostackframe; sym_kInterrupt; sym_kNoreturn;
   sym_kIocheck; sym_kLocal; sym_kHardfloat; sym_kSoftfloat; sym_kMs_abi_default;
   sym_kMs_abi_cdecl; sym_kSaveregisters; sym_kSysv_abi_default; sym_kSysv_abi_cdecl;
   sym_kVectorcall; sym_kVarargs; sym_kWinapi]; ACTIONS 11651 [sym_kAlias];
   ACTIONS 1111 [sym_kClass; sym_kConst; sym_kConstructor; sym_kDestructor; sym_kEnd;
   sym_kExports; sym_kFinalization; sym_kFunction; sym_kImplementation; sym_kInitialization];
   ACTIONS 1016 [sym_kInline]; ACTIONS 1111 [sym_kInterface; sym_kLabel; sym_kProcedure;
   sym_kProperty; sym_kResourcestring; sym_kThreadvar; sym_kType; sym_kUses; sym_kVar]].

(** State 1763. *)
Definition ts_parse_table_1763 : parse_row :=
  [STATE 2907 [sym__ppIf]; STATE 2561 [sym__procAttributeNoExt];
   STATE 2564 [sym__procAttributesPp]; STATE 15242 [sym_procAttribute];
   STATE 1716 [aux_sym__declProc_repeat1]; ACTIONS 12538 [anon_sym_LBRACK];
   ACTIONS 1149 [aux_sym_ppUsesBlock_token1]; ACTIONS 3 [sym__space];
   ACTIONS 5 [sym_ppDirective]; ACTIONS 3 [sym_comment]; ACTIONS 1016 [sym_kDefault;
   sym_kNodefault]; ACTIONS 11641 [sym_kDispId]; ACTIONS 1142 [sym_kGeneric; sym_kOperator];
   ACTIONS 11643 [sym_kPublic]; ACTIONS 1016 [sym_kStatic; sym_kVirtual; sym_kAbstract;
   sym_kDynamic; sym_kOverride; sym_kOverload; sym_kReintroduce; sym_kStdcall; sym_kCdecl;
   sym_kCppdecl; sym_kPascal; sym_kRegister; sym_kMwpascal]; ACTIONS 11645 [sym_kMessage];
   ACTIONS 11647 [sym_kDeprecated]; ACTIONS 1016 [sym_kExperimental; sym_kPlatform;
   sym_kUnimplemented; sym_kCvar]; ACTIONS 11649 [sym_kExport]; ACTIONS 1016 [sym_kFar;
   sym_kNear; sym_kSafecall; sym_kAssembler; sym_kNostackframe; sym_kInterrupt; sym_kNoreturn;
   sym_kIocheck; sym_kLocal; sym_kHardfloat; sym_kSoftfloat; sym_kMs_abi_default;
   sym_kMs_abi_cdecl; sym_kSaveregisters; sym_kSysv_abi_default; sym_kSysv_abi_cdecl;
   sym_kVectorcall; sym_kVarargs; sym_kWinapi]; ACTIONS 11651 [sym_kAlias];
   ACTIONS 1142 [sym_kClass; sym_kConst; sym_kConstructor; sym_kDestructor; sym_kEnd;
   sym_kExports; sym_kFinalization; sym_kFunction; sym_kImplementation; sym_kInitialization];
   ACTIONS 1016 [sym_kInline]; ACTIONS 1142 [sym_kInterface; sym_kLabel; sym_kProcedure;
   sym_kProperty; sym_kResourcestring; sym_kThreadvar; sym_kType; sym_kUses; sym_kVar]].

(** State 1764. *)
Definition ts_parse_table_1764 : parse_row :=
  [STATE 2875 [sym__ppIf]; STATE 2590 [sym__procAttributeNoExt];
   STATE 2591 [sym__procAttributesPp]; STATE 14895 [sym_procAttribute];
   STATE 1766 [aux_sym__declProc_repeat1]; ACTIONS 12541 [anon_sym_LBRACK];
   ACTIONS 5633 [aux_sym_ppUsesBlock_token1]; ACTIONS 3 [sym__space];
   ACTIONS 5 [sym_ppDirective]; ACTIONS 3 [sym_comment]; ACTIONS 1016 [sym_kDefault;
   sym_kNodefault]; ACTIONS 11641 [sym_kDispId]; ACTIONS 5626 [sym_kGeneric; sym_kOperator;
   sym_kPublished]; ACTIONS 5642 [sym_kPublic]; ACTIONS 5626 [sym_kProtected; sym_kPrivate;
   sym_kStrict; sym_kRequired; sym_kOptional]; ACTIONS 1016 [sym_kStatic; sym_kVirtual;
   sym_kAbstract; sym_kDynamic; sym_kOverride; sym_kOverload; sym_kReintroduce; sym_kStdcall;
   sym_kCdecl; sym_kCppdecl; sym_kPascal; sym_kRegister; sym_kMwpascal];
   ACTIONS 11645 [sym_kMessage]; ACTIONS 11647 [sym_kDeprecated];
   ACTIONS 1016 [sym_kExperimental; sym_kPlatform; sym_kUnimplemented; sym_kCvar];
   ACTIONS 11649 [sym_kExport]; ACTIONS 1016 [sym_kFar; sym_kNear; sym_kSafecall; sym_kAssembler;
   sym_kNostackframe; sym_kInterrupt; sym_kNoreturn; sym_kIocheck; sym_kLocal; sym_kHardfloat;
   sym_kSoftfloat; sym_kMs_abi_default; sym_kMs_abi_cdecl; sym_kSaveregisters;
   sym_kSysv_abi_default; sym_kSysv_abi_cdecl; sym_kVectorcall; sym_kVarargs; sym_kWinapi];
   ACTIONS 11651 [sym_kAlias]; ACTIONS 5626 [sym_kCase; sym_kClass; sym_kConst; sym_kConstructor;
   sym_kDestructor; sym_kEnd; sym_kFunction]; ACTIONS 1016 [sym_kInline];
   ACTIONS 5626 [sym_kProcedure; sym_kProperty; sym_kResourcestring; sym_kThreadvar; sym_kType;
   sym_kVar]].

(** State 1765. *)
Definition ts_parse_table_1765 : parse_row :=
  [STATE 2875 [sym__ppIf]; STATE 2590 [sym__procAttributeNoExt];
   STATE 2591 [sym__procAttributesPp]; STATE 14895 [sym_procAttribute];
   STATE 1770 [aux_sym__declProc_repeat1]; ACTIONS 12544 [anon_sym_LBRACK];
   ACTIONS 6560 [aux_sym_ppUsesBlock_token1]; ACTIONS 3 [sym__space];
   ACTIONS 5 [sym_ppDirective]; ACTIONS 3 [sym_comment]; ACTIONS 1016 [sym_kDefault;
   sym_kNodefault]; ACTIONS 11641 [sym_kDispId]; ACTIONS 6553 [sym_kGeneric; sym_kOperator;
   sym_kPublished]; ACTIONS 6569 [sym_kPublic]; ACTIONS 6553 [sym_kProtected; sym_kPrivate;
   sym_kStrict; sym_kRequired; sym_kOptional]; ACTIONS 1016 [sym_kStatic; sym_kVirtual;
   sym_kAbstract; sym_kDynamic; sym_kOverride; sym_kOverload; sym_kReintroduce; sym_kStdcall;
   sym_kCdecl; sym_kCppdecl; sym_kPascal; sym_kRegister; sym_kMwpascal];
   ACTIONS 11645 [sym_kMessage]; ACTIONS 11647 [sym_kDeprecated];
   ACTIONS 1016 [sym_kExperimental; sym_kPlatform; sym_kUnimplemented; sym_kCvar];
   ACTIONS 11649 [sym_kExport]; ACTIONS 1016 [sym_kFar; sym_kNear; sym_kSafecall; sym_kAssembler;
   sym_kNostackframe; sym_kInterrupt; sym_kNoreturn; sym_kIocheck; sym_kLocal; sym_kHardfloat;
   sym_kSoftfloat; sym_kMs_abi_default; sym_kMs_abi_cdecl; sym_kSaveregisters;
   sym_kSysv_abi_default; sym_kSysv_abi_cdecl; sym_kVectorcall; sym_kVarargs; sym_kWinapi];
   ACTIONS 11651 [sym_kAlias]; ACTIONS 6553 [sym_kCase; sym_kClass; sym_kConst; sym_kConstructor;
   sym_kDestructor; sym_kEnd; sym_kFunction]; ACTIONS 1016 [sym_kInline];
   ACTIONS 6553 [sym_kProcedure; sym_kProperty; sym_kResourcestring; sym_kThreadvar; sym_kType;
   sym_kVar]].

(** State 1766. *)
Definition ts_parse_table_1766 : parse_row :=
  [STATE 2875 [sym__ppIf]; STATE 2590 [sym__procAttributeNoExt];
   STATE 2591 [sym__procAttributesPp]; STATE 14895 [sym_procAttribute];
   STATE 1901 [aux_sym__declProc_repeat1]; ACTIONS 12547 [anon_sym_LBRACK];
   ACTIONS 6653 [aux_sym_ppUsesBlock_token1]; ACTIONS 3 [sym__space];
   ACTIONS 5 [sym_ppDirective]; ACTIONS 3 [sym_comment]; ACTIONS 1016 [sym_kDefault;
   sym_kNodefault]; ACTIONS 11641 [sym_kDispId]; ACTIONS 6646 [sym_kGeneric; sym_kOperator;
   sym_kPublished]; ACTIONS 6662 [sym_kPublic]; ACTIONS 6646 [sym_kProtected; sym_kPrivate;
   sym_kStrict; sym_kRequired; sym_kOptional]; ACTIONS 1016 [sym_kStatic; sym_kVirtual;
   sym_kAbstract; sym_kDynamic; sym_kOverride; sym_kOverload; sym_kReintroduce; sym_kStdcall;
   sym_kCdecl; sym_kCppdecl; sym_kPascal; sym_kRegister; sym_kMwpascal];
   ACTIONS 11645 [sym_kMessage]; ACTIONS 11647 [sym_kDeprecated];
   ACTIONS 1016 [sym_kExperimental; sym_kPlatform; sym_kUnimplemented; sym_kCvar];
   ACTIONS 11649 [sym_kExport]; ACTIONS 1016 [sym_kFar; sym_kNear; sym_kSafecall; sym_kAssembler;
   sym_kNostackframe; sym_kInterrupt; sym_kNoreturn; sym_kIocheck; sym_kLocal; sym_kHardfloat;
   sym_kSoftfloat; sym_kMs_abi_default; sym_kMs_abi_cdecl; sym_kSaveregisters;
   sym_kSysv_abi_default; sym_kSysv_abi_cdecl; sym_kVectorcall; sym_kVarargs; sym_kWinapi];
   ACTIONS 11651 [sym_kAlias]; ACTIONS 6646 [sym_kCase; sym_kClass; sym_kConst; sym_kConstructor;
   sym_kDestructor; sym_kEnd; sym_kFunction]; ACTIONS 1016 [sym_kInline];
   ACTIONS 6646 [sym_kProcedure; sym_kProperty; sym_kResourcestring; sym_kThreadvar; sym_kType;
   sym_kVar]].

(** State 1767. *)
Definition ts_parse_table_1767 : parse_row :=
  [STATE 2875 [sym__ppIf]; STATE 2590 [sym__procAttributeNoExt];
   STATE 2591 [sym__procAttributesPp]; STATE 14895 [sym_procAttribute];
   STATE 1773 [aux_sym__declProc_repeat1]; ACTIONS 12550 [anon_sym_LBRACK];
   ACTIONS 7066 [aux_sym_ppUsesBlock_token1]; ACTIONS 3 [sym__space];
   ACTIONS 5 [sym_ppDirective]; ACTIONS 3 [sym_comment]; ACTIONS 1016 [sym_kDefault;
   sym_kNodefault]; ACTIONS 11641 [sym_kDispId]; ACTIONS 7059 [sym_kGeneric; sym_kOperator;
   sym_kPublished]; ACTIONS 7075 [sym_kPublic]; ACTIONS 7059 [sym_kProtected; sym_kPrivate;
   sym_kStrict; sym_kRequired; sym_kOptional]; ACTIONS 1016 [sym_kStatic; sym_kVirtual;
   sym_kAbstract; sym_kDynamic; sym_kOverride; sym_kOverload; sym_kReintroduce; sym_kStdcall;
   sym_kCdecl; sym_kCppdecl; sym_kPascal; sym_kRegister; sym_kMwpascal];
   ACTIONS 11645 [sym_kMessage]; ACTIONS 11647 [sym_kDeprecated];
   ACTIONS 1016 [sym_kExperimental; sym_kPlatform; sym_kUnimplemented; sym_kCvar];
   ACTIONS 11649 [sym_kExport]; ACTIONS 1016 [sym_kFar; sym_kNear; sym_kSafecall; sym_kAssembler;
   sym_kNostackframe; sym_kInterrupt; sym_kNoreturn; sym_kIocheck; sym_kLocal; sym_kHardfloat;
   sym_kSoftfloat; sym_kMs_abi_default; sym_kMs_abi_cdecl; sym_kSaveregisters;
   sym_kSysv_abi_default; sym_kSysv_abi_cdecl; sym_kVectorcall; sym_kVarargs; sym_kWinapi];
   ACTIONS 11651 [sym_kAlias]; ACTIONS 7059 [sym_kCase; sym_kClass; sym_kConst; sym_kConstructor;
   sym_kDestructor; sym_kEnd; sym_kFunction]; ACTIONS 1016 [sym_kInline];
   ACTIONS 7059 [sym_kProcedure; sym_kProperty; sym_kResourcestring; sym_kThreadvar; sym_kType;
   sym_kVar]].

(** State 1768. *)
Definition ts_parse_table_1768 : parse_row :=
  [STATE 2875 [sym__ppIf]; STATE 2590 [sym__procAttributeNoExt];
   STATE 2591 [sym__procAttributesPp]; STATE 14895 [sym_procAttribute];
   STATE 1775 [aux_sym__declProc_repeat1]; ACTIONS 12553 [anon_sym_LBRACK];
   ACTIONS 7212 [aux_sym_ppUsesBlock_token1]; ACTIONS 3 [sym__space];
   ACTIONS 5 [sym_ppDirective]; ACTIONS 3 [sym_comment]; ACTIONS 1016 [sym_kDefault;
   sym_kNodefault]; ACTIONS 11641 [sym_kDispId]; ACTIONS 7205 [sym_kGeneric; sym_kOperator;
   sym_kPublished]; ACTIONS 7221 [sym_kPublic]; ACTIONS 7205 [sym_kProtected; sym_kPrivate;
   sym_kStrict; sym_kRequired; sym_kOptional]; ACTIONS 1016 [sym_kStatic; sym_kVirtual;
   sym_kAbstract; sym_kDynamic; sym_kOverride; sym_kOverload; sym_kReintroduce; sym_kStdcall;
   sym_kCdecl; sym_kCppdecl; sym_kPascal; sym_kRegister; sym_kMwpascal];
   ACTIONS 11645 [sym_kMessage]; ACTIONS 11647 [sym_kDeprecated];
   ACTIONS 1016 [sym_kExperimental; sym_kPlatform; sym_kUnimplemented; sym_kCvar];
   ACTIONS 11649 [sym_kExport]; ACTIONS 1016 [sym_kFar; sym_kNear; sym_kSafecall; sym_kAssembler;
   sym_kNostackframe; sym_kInterrupt; sym_kNoreturn; sym_kIocheck; sym_kLocal; sym_kHardfloat;
   sym_kSoftfloat; sym_kMs_abi_default; sym_kMs_abi_cdecl; sym_kSaveregisters;
   sym_kSysv_abi_default; sym_kSysv_abi_cdecl; sym_kVectorcall; sym_kVarargs; sym_kWinapi];
   ACTIONS 11651 [sym_kAlias]; ACTIONS 7205 [sym_kCase; sym_kClass; sym_kConst; sym_kConstructor;
   sym_kDestructor; sym_kEnd; sym_kFunction]; ACTIONS 1016 [sym_kInline];
   ACTIONS 7205 [sym_kProcedure; sym_kProperty; sym_kResourcestring; sym_kThreadvar; sym_kType;
   sym_kVar]].

(** State 1769. *)
Definition ts_parse_table_1769 : parse_row :=
  [STATE 2875 [sym__ppIf]; STATE 2590 [sym__procAttributeNoExt];
   STATE 2591 [sym__procAttributesPp]; STATE 14895 [sym_procAttribute];
   STATE 1778 [aux_sym__declProc_repeat1]; ACTIONS 12556 [anon_sym_LBRACK];
   ACTIONS 7243 [aux_sym_ppUsesBlock_token1]; ACTIONS 3 [sym__space];
   ACTIONS 5 [sym_ppDirective]; ACTIONS 3 [sym_comment]; ACTIONS 1016 [sym_kDefault;
   sym_kNodefault]; ACTIONS 11641 [sym_kDispId]; ACTIONS 7236 [sym_kGeneric; sym_kOperator;
   sym_kPublished]; ACTIONS 7252 [sym_kPublic]; ACTIONS 7236 [sym_kProtected; sym_kPrivate;
   sym_kStrict; sym_kRequired; sym_kOptional]; ACTIONS 1016 [sym_kStatic; sym_kVirtual;
   sym_kAbstract; sym_kDynamic; sym_kOverride; sym_kOverload; sym_kReintroduce; sym_kStdcall;
   sym_kCdecl; sym_kCppdecl; sym_kPascal; sym_kRegister; sym_kMwpascal];
   ACTIONS 11645 [sym_kMessage]; ACTIONS 11647 [sym_kDeprecated];
   ACTIONS 1016 [sym_kExperimental; sym_kPlatform; sym_kUnimplemented; sym_kCvar];
   ACTIONS 11649 [sym_kExport]; ACTIONS 1016 [sym_kFar; sym_kNear; sym_kSafecall; sym_kAssembler;
   sym_kNostackframe; sym_kInterrupt; sym_kNoreturn; sym_kIocheck; sym_kLocal; sym_kHardfloat;
   sym_kSoftfloat; sym_kMs_abi_default; sym_kMs_abi_cdecl; sym_kSaveregisters;
   sym_kSysv_abi_default; sym_kSysv_abi_cdecl; sym_kVectorcall; sym_kVarargs; sym_kWinapi];
   ACTIONS 11651 [sym_kAlias]; ACTIONS 7236 [sym_kCase; sym_kClass; sym_kConst; sym_kConstructor;
   sym_kDestructor; sym_kEnd; sym_kFunction]; ACTIONS 1016 [sym_kInline];
   ACTIONS 7236 [sym_kProcedure; sym_kProperty; sym_kResourcestring; sym_kThreadvar; sym_kType;
   sym_kVar]].

(** State 1770. *)
Definition ts_parse_table_1770 : parse_row :=
  [STATE 2875 [sym__ppIf]; STATE 2590 [sym__procAttributeNoExt];
   STATE 2591 [sym__procAttributesPp]; STATE 14895 [sym_procAttribute];
   STATE 1901 [aux_sym__declProc_repeat1]; ACTIONS 12559 [anon_sym_LBRACK];
   ACTIONS 4945 [aux_sym_ppUsesBlock_token1]; ACTIONS 3 [sym__space];
   ACTIONS 5 [sym_ppDirective]; ACTIONS 3 [sym_comment]; ACTIONS 1016 [sym_kDefault;
   sym_kNodefault]; ACTIONS 11641 [sym_kDispId]; ACTIONS 4938 [sym_kGeneric; sym_kOperator;
   sym_kPublished]; ACTIONS 4954 [sym_kPublic]; ACTIONS 4938 [sym_kProtected; sym_kPrivate;
   sym_kStrict; sym_kRequired; sym_kOptional]; ACTIONS 1016 [sym_kStatic; sym_kVirtual;
   sym_kAbstract; sym_kDynamic; sym_kOverride; sym_kOverload; sym_kReintroduce; sym_kStdcall;
   sym_kCdecl; sym_kCppdecl; sym_kPascal; sym_kRegister; sym_kMwpascal];
   ACTIONS 11645 [sym_kMessage]; ACTIONS 11647 [sym_kDeprecated];
   ACTIONS 1016 [sym_kExperimental; sym_kPlatform; sym_kUnimplemented; sym_kCvar];
   ACTIONS 11649 [sym_kExport]; ACTIONS 1016 [sym_kFar; sym_kNear; sym_kSafecall; sym_kAssembler;
   sym_kNostackframe; sym_kInterrupt; sym_kNoreturn; sym_kIocheck; sym_kLocal; sym_kHardfloat;
   sym_kSoftfloat; sym_kMs_abi_default; sym_kMs_abi_cdecl; sym_kSaveregisters;
   sym_kSysv_abi_default; sym_kSysv_abi_cdecl; sym_kVectorcall; sym_kVarargs; sym_kWinapi];
   ACTIONS 11651 [sym_kAlias]; ACTIONS 4938 [sym_kCase; sym_kClass; sym_kConst; sym_kConstructor;
   sym_kDestructor; sym_kEnd; sym_kFunction]; ACTIONS 1016 [sym_kInline];
   ACTIONS 4938 [sym_kProcedure; sym_kProperty; sym_kResourcestring; sym_kThreadvar; sym_kType;
   sym_kVar]].

(** State 1771. *)
Definition ts_parse_table_1771 : parse_row :=
  [STATE 2875 [sym__ppIf]; STATE 2590 [sym__procAttributeNoExt];
   STATE 2591 [sym__procAttributesPp]; STATE 14895 [sym_procAttribute];
   STATE 1782 [aux_sym__declProc_repeat1]; ACTIONS 12562 [anon_sym_LBRACK];
   ACTIONS 5509 [aux_sym_ppUsesBlock_token1]; ACTIONS 3 [sym__space];
   ACTIONS 5 [sym_ppDirective]; ACTIONS 3 [sym_comment]; ACTIONS 1016 [sym_kDefault;
   sym_kNodefault]; ACTIONS 11641 [sym_kDispId]; ACTIONS 5502 [sym_kGeneric; sym_kOperator;
   sym_kPublished]; ACTIONS 5518 [sym_kPublic]; ACTIONS 5502 [sym_kProtected; sym_kPrivate;
   sym_kStrict; sym_kRequired; sym_kOptional]; ACTIONS 1016 [sym_kStatic; sym_kVirtual;
   sym_kAbstract; sym_kDynamic; sym_kOverride; sym_kOverload; sym_kReintroduce; sym_kStdcall;
   sym_kCdecl; sym_kCppdecl; sym_kPascal; sym_kRegister; sym_kMwpascal];
   ACTIONS 11645 [sym_kMessage]; ACTIONS 11647 [sym_kDeprecated];
   ACTIONS 1016 [sym_kExperimental; sym_kPlatform; sym_kUnimplemented; sym_kCvar];
   ACTIONS 11649 [sym_kExport]; ACTIONS 1016 [sym_kFar; sym_kNear; sym_kSafecall; sym_kAssembler;
   sym_kNostackframe; sym_kInterrupt; sym_kNoreturn; sym_kIocheck; sym_kLocal; sym_kHardfloat;
   sym_kSoftfloat; sym_kMs_abi_default; sym_kMs_abi_cdecl; sym_kSaveregisters;
   sym_kSysv_abi_default; sym_kSysv_abi_cdecl; sym_kVectorcall; sym_kVarargs; sym_kWinapi];
   ACTIONS 11651 [sym_kAlias]; ACTIONS 5502 [sym_kCase; sym_kClass; sym_kConst; sym_kConstructor;
   sym_kDestructor; sym_kEnd; sym_kFunction]; ACTIONS 1016 [sym_kInline];
   ACTIONS 5502 [sym_kProcedure; sym_kProperty; sym_kResourcestring; sym_kThreadvar; sym_kType;
   sym_kVar]].

(** State 1772. *)
Definition ts_parse_table_1772 : parse_row :=
  [STATE 2875 [sym__ppIf]; STATE 2590 [sym__procAttributeNoExt];
   STATE 2591 [sym__procAttributesPp]; STATE 14895 [sym_procAttribute];
   STATE 1783 [aux_sym__declProc_repeat1]; ACTIONS 12565 [anon_sym_LBRACK];
   ACTIONS 3825 [aux_sym_ppUsesBlock_token1]; ACTIONS 3 [sym__space];
   ACTIONS 5 [sym_ppDirective]; ACTIONS 3 [sym_comment]; ACTIONS 1016 [sym_kDefault;
   sym_kNodefault]; ACTIONS 11641 [sym_kDispId]; ACTIONS 3818 [sym_kGeneric; sym_kOperator;
   sym_kPublished]; ACTIONS 3834 [sym_kPublic]; ACTIONS 3818 [sym_kProtected; sym_kPrivate;
   sym_kStrict; sym_kRequired; sym_kOptional]; ACTIONS 1016 [sym_kStatic; sym_kVirtual;
   sym_kAbstract; sym_kDynamic; sym_kOverride; sym_kOverload; sym_kReintroduce; sym_kStdcall;
   sym_kCdecl; sym_kCppdecl; sym_kPascal; sym_kRegister; sym_kMwpascal];
   ACTIONS 11645 [sym_kMessage]; ACTIONS 11647 [sym_kDeprecated];
   ACTIONS 1016 [sym_kExperimental; sym_kPlatform; sym_kUnimplemented; sym_kCvar];
   ACTIONS 11649 [sym_kExport]; ACTIONS 1016 [sym_kFar; sym_kNear; sym_kSafecall; sym_kAssembler;
   sym_kNostackframe; sym_kInterrupt; sym_kNoreturn; sym_kIocheck; sym_kLocal; sym_kHardfloat;
   sym_kSoftfloat; sym_kMs_abi_default; sym_kMs_abi_cdecl; sym_kSaveregisters;
   sym_kSysv_abi_default; sym_kSysv_abi_cdecl; sym_kVectorcall; sym_kVarargs; sym_kWinapi];
   ACTIONS 11651 [sym_kAlias]; ACTIONS 3818 [sym_kCase; sym_kClass; sym_kConst; sym_kConstructor;
   sym_kDestructor; sym_kEnd; sym_kFunction]; ACTIONS 1016 [sym_kInline];
   ACTIONS 3818 [sym_kProcedure; sym_kProperty; sym_kResourcestring; sym_kThreadvar; sym_kType;
   sym_kVar]].

(** State 1773. *)
Definition ts_parse_table_1773 : parse_row :=
  [STATE 2875 [sym__ppIf]; STATE 2590 [sym__procAttributeNoExt];
   STATE 2591 [sym__procAttributesPp]; STATE 14895 [sym_procAttribute];
   STATE 1901 [aux_sym__declProc_repeat1]; ACTIONS 12568 [anon_sym_LBRACK];
   ACTIONS 4213 [aux_sym_ppUsesBlock_token1]; ACTIONS 3 [sym__space];
   ACTIONS 5 [sym_ppDirective]; ACTIONS 3 [sym_comment]; ACTIONS 1016 [sym_kDefault;
   sym_kNodefault]; ACTIONS 11641 [sym_kDispId]; ACTIONS 4206 [sym_kGeneric; sym_kOperator;
   sym_kPublished]; ACTIONS 4222 [sym_kPublic]; ACTIONS 4206 [sym_kProtected; sym_kPrivate;
   sym_kStrict; sym_kRequired; sym_kOptional]; ACTIONS 1016 [sym_kStatic; sym_kVirtual;
   sym_kAbstract; sym_kDynamic; sym_kOverride; sym_kOverload; sym_kReintroduce; sym_kStdcall;
   sym_kCdecl; sym_kCppdecl; sym_kPascal; sym_kRegister; sym_kMwpascal];
   ACTIONS 11645 [sym_kMessage]; ACTIONS 11647 [sym_kDeprecated];
   ACTIONS 1016 [sym_kExperimental; sym_kPlatform; sym_kUnimplemented; sym_kCvar];
   ACTIONS 11649 [sym_kExport]; ACTIONS 1016 [sym_kFar; sym_kNear; sym_kSafecall; sym_kAssembler;
   sym_kNostackframe; sym_kInterrupt; sym_kNoreturn; sym_kIocheck; sym_kLocal; sym_kHardfloat;
   sym_kSoftfloat; sym_kMs_abi_default; sym_kMs_abi_cdecl; sym_kSaveregisters;
   sym_kSysv_abi_default; sym_kSysv_abi_cdecl; sym_kVectorcall; sym_kVarargs; sym_kWinapi];
   ACTIONS 11651 [sym_kAlias]; ACTIONS 4206 [sym_kCase; sym_kClass; sym_kConst; sym_kConstructor;
   sym_kDestructor; sym_kEnd; sym_kFunction]; ACTIONS 1016 [sym_kInline];
   ACTIONS 4206 [sym_kProcedure; sym_kProperty; sym_kResourcestring; sym_kThreadvar; sym_kType;
   sym_kVar]].

(** State 1774. *)
Definition ts_parse_table_1774 : parse_row :=
  [STATE 2875 [sym__ppIf]; STATE 2590 [sym__procAttributeNoExt];
   STATE 2591 [sym__procAttributesPp]; STATE 14895 [sym_procAttribute];
   STATE 1785 [aux_sym__declProc_repeat1]; ACTIONS 12571 [anon_sym_LBRACK];
   ACTIONS 4272 [aux_sym_ppUsesBlock_token1]; ACTIONS 3 [sym__space];
   ACTIONS 5 [sym_ppDirective]; ACTIONS 3 [sym_comment]; ACTIONS 1016 [sym_kDefault;
   sym_kNodefault]; ACTIONS 11641 [sym_kDispId]; ACTIONS 4265 [sym_kGeneric; sym_kOperator;
   sym_kPublished]; ACTIONS 4281 [sym_kPublic]; ACTIONS 4265 [sym_kProtected; sym_kPrivate;
   sym_kStrict; sym_kRequired; sym_kOptional]; ACTIONS 1016 [sym_kStatic; sym_kVirtual;
   sym_kAbstract; sym_kDynamic; sym_kOverride; sym_kOverload; sym_kReintroduce; sym_kStdcall;
   sym_kCdecl; sym_kCppdecl; sym_kPascal; sym_kRegister; sym_kMwpascal];
   ACTIONS 11645 [sym_kMessage]; ACTIONS 11647 [sym_kDeprecated];
   ACTIONS 1016 [sym_kExperimental; sym_kPlatform; sym_kUnimplemented; sym_kCvar];
   ACTIONS 11649 [sym_kExport]; ACTIONS 1016 [sym_kFar; sym_kNear; sym_kSafecall; sym_kAssembler;
   sym_kNostackframe; sym_kInterrupt; sym_kNoreturn; sym_kIocheck; sym_kLocal; sym_kHardfloat;
   sym_kSoftfloat; sym_kMs_abi_default; sym_kMs_abi_cdecl; sym_kSaveregisters;
   sym_kSysv_abi_default; sym_kSysv_abi_cdecl; sym_kVectorcall; sym_kVarargs; sym_kWinapi];
   ACTIONS 11651 [sym_kAlias]; ACTIONS 4265 [sym_kCase; sym_kClass; sym_kConst; sym_kConstructor;
   sym_kDestructor; sym_kEnd; sym_kFunction]; ACTIONS 1016 [sym_kInline];
   ACTIONS 4265 [sym_kProcedure; sym_kProperty; sym_kResourcestring; sym_kThreadvar; sym_kType;
   sym_kVar]].

(** State 1775. *)
Definition ts_parse_table_1775 : parse_row :=
  [STATE 2875 [sym__ppIf]; STATE 2590 [sym__procAttributeNoExt];
   STATE 2591 [sym__procAttributesPp]; STATE 14895 [sym_procAttribute];
   STATE 1901 [aux_sym__declProc_repeat1]; ACTIONS 12574 [anon_sym_LBRACK];
   ACTIONS 4310 [aux_sym_ppUsesBlock_token1]; ACTIONS 3 [sym__space];
   ACTIONS 5 [sym_ppDirective]; ACTIONS 3 [sym_comment]; ACTIONS 1016 [sym_kDefault;
   sym_kNodefault]; ACTIONS 11641 [sym_kDispId]; ACTIONS 4303 [sym_kGeneric; sym_kOperator;
   sym_kPublished]; ACTIONS 4319 [sym_kPublic]; ACTIONS 4303 [sym_kProtected; sym_kPrivate;
   sym_kStrict; sym_kRequired; sym_kOptional]; ACTIONS 1016 [sym_kStatic; sym_kVirtual;
   sym_kAbstract; sym_kDynamic; sym_kOverride; sym_kOverload; sym_kReintroduce; sym_kStdcall;
   sym_kCdecl; sym_kCppdecl; sym_kPascal; sym_kRegister; sym_kMwpascal];
   ACTIONS 11645 [sym_kMessage]; ACTIONS 11647 [sym_kDeprecated];
   ACTIONS 1016 [sym_kExperimental; sym_kPlatform; sym_kUnimplemented; sym_kCvar];
   ACTIONS 11649 [sym_kExport]; ACTIONS 1016 [sym_kFar; sym_kNear; sym_kSafecall; sym_kAssembler;
   sym_kNostackframe; sym_kInterrupt; sym_kNoreturn; sym_kIocheck; sym_kLocal; sym_kHardfloat;
   sym_kSoftfloat; sym_kMs_abi_default; sym_kMs_abi_cdecl; sym_kSaveregisters;
   sym_kSysv_abi_default; sym_kSysv_abi_cdecl; sym_kVectorcall; sym_kVarargs; sym_kWinapi];
   ACTIONS 11651 [sym_kAlias]; ACTIONS 4303 [sym_kCase; sym_kClass; sym_kConst; sym_kConstructor;
   sym_kDestructor; sym_kEnd; sym_kFunction]; ACTIONS 1016 [sym_kInline];
   ACTIONS 4303 [sym_kProcedure; sym_kProperty; sym_kResourcestring; sym_kThreadvar; sym_kType;
   sym_kVar]].

(** State 1776. *)
Definition ts_parse_table_1776 : parse_row :=
  [STATE 2875 [sym__ppIf]; STATE 2590 [sym__procAttributeNoExt];
   STATE 2591 [sym__procAttributesPp]; STATE 14895 [sym_procAttribute];
   STATE 1788 [aux_sym__declProc_repeat1]; ACTIONS 12577 [anon_sym_LBRACK];
   ACTIONS 4796 [aux_sym_ppUsesBlock_token1]; ACTIONS 3 [sym__space];
   ACTIONS 5 [sym_ppDirective]; ACTIONS 3 [sym_comment]; ACTIONS 1016 [sym_kDefault;
   sym_kNodefault]; ACTIONS 11641 [sym_kDispId]; ACTIONS 4789 [sym_kGeneric; sym_kOperator;
   sym_kPublished]; ACTIONS 4805 [sym_kPublic]; ACTIONS 4789 [sym_kProtected; sym_kPrivate;
   sym_kStrict; sym_kRequired; sym_kOptional]; ACTIONS 1016 [sym_kStatic; sym_kVirtual;
   sym_kAbstract; sym_kDynamic; sym_kOverride; sym_kOverload; sym_kReintroduce; sym_kStdcall;
   sym_kCdecl; sym_kCppdecl; sym_kPascal; sym_kRegister; sym_kMwpascal];
   ACTIONS 11645 [sym_kMessage]; ACTIONS 11647 [sym_kDeprecated];
   ACTIONS 1016 [sym_kExperimental; sym_kPlatform; sym_kUnimplemented; sym_kCvar];
   ACTIONS 11649 [sym_kExport]; ACTIONS 1016 [sym_kFar; sym_kNear; sym_kSafecall; sym_kAssembler;
   sym_kNostackframe; sym_kInterrupt; sym_kNoreturn; sym_kIocheck; sym_kLocal; sym_kHardfloat;
   sym_kSoftfloat; sym_kMs_abi_default; sym_kMs_abi_cdecl; sym_kSaveregisters;
   sym_kSysv_abi_default; sym_kSysv_abi_cdecl; sym_kVectorcall; sym_kVarargs; sym_kWinapi];
   ACTIONS 11651 [sym_kAlias]; ACTIONS 4789 [sym_kCase; sym_kClass; sym_kConst; sym_kConstructor;
   sym_kDestructor; sym_kEnd; sym_kFunction]; ACTIONS 1016 [sym_kInline];
   ACTIONS 4789 [sym_kProcedure; sym_kProperty; sym_kResourcestring; sym_kThreadvar; sym_kType;
   sym_kVar]].

(** State 1777. *)
Definition ts_parse_table_1777 : parse_row :=
  [STATE 2875 [sym__ppIf]; STATE 2590 [sym__procAttributeNoExt];
   STATE 2591 [sym__procAttributesPp]; STATE 14895 [sym_procAttribute];
   STATE 1789 [aux_sym__declProc_repeat1]; ACTIONS 12580 [anon_sym_LBRACK];
   ACTIONS 5004 [aux_sym_ppUsesBlock_token1]; ACTIONS 3 [sym__space];
   ACTIONS 5 [sym_ppDirective]; ACTIONS 3 [sym_comment]; ACTIONS 1016 [sym_kDefault;
   sym_kNodefault]; ACTIONS 11641 [sym_kDispId]; ACTIONS 4997 [sym_kGeneric; sym_kOperator;
   sym_kPublished]; ACTIONS 5013 [sym_kPublic]; ACTIONS 4997 [sym_kProtected; sym_kPrivate;
   sym_kStrict; sym_kRequired; sym_kOptional]; ACTIONS 1016 [sym_kStatic; sym_kVirtual;
   sym_kAbstract; sym_kDynamic; sym_kOverride; sym_kOverload; sym_kReintroduce; sym_kStdcall;
   sym_kCdecl; sym_kCppdecl; sym_kPascal; sym_kRegister; sym_kMwpascal];
   ACTIONS 11645 [sym_kMessage]; ACTIONS 11647 [sym_kDeprecated];
   ACTIONS 1016 [sym_kExperimental; sym_kPlatform; sym_kUnimplemented; sym_kCvar];
   ACTIONS 11649 [sym_kExport]; ACTIONS 1016 [sym_kFar; sym_kNear; sym_kSafecall; sym_kAssembler;
   sym_kNostackframe; sym_kInterrupt; sym_kNoreturn; sym_kIocheck; sym_kLocal; sym_kHardfloat;
   sym_kSoftfloat; sym_kMs_abi_default; sym_kMs_abi_cdecl; sym_kSaveregisters;
   sym_kSysv_abi_default; sym_kSysv_abi_cdecl; sym_kVectorcall; sym_kVarargs; sym_kWinapi];
   ACTIONS 11651 [sym_kAlias]; ACTIONS 4997 [sym_kCase; sym_kClass; sym_kConst; sym_kConstructor;
   sym_kDestructor; sym_kEnd; sym_kFunction]; ACTIONS 1016 [sym_kInline];
   ACTIONS 4997 [sym_kProcedure; sym_kProperty; sym_kResourcestring; sym_kThreadvar; sym_kType;
   sym_kVar]].

(** State 1778. *)
Definition ts_parse_table_1778 : parse_row :=
  [STATE 2875 [sym__ppIf]; STATE 2590 [sym__procAttributeNoExt];
   STATE 2591 [sym__procAttributesPp]; STATE 14895 [sym_procAttribute];
   STATE 1901 [aux_sym__declProc_repeat1]; ACTIONS 12583 [anon_sym_LBRACK];
   ACTIONS 5035 [aux_sym_ppUsesBlock_token1]; ACTIONS 3 [sym__space];
   ACTIONS 5 [sym_ppDirective]; ACTIONS 3 [sym_comment]; ACTIONS 1016 [sym_kDefault;
   sym_kNodefault]; ACTIONS 11641 [sym_kDispId]; ACTIONS 5028 [sym_kGeneric; sym_kOperator;
   sym_kPublished]; ACTIONS 5044 [sym_kPublic]; ACTIONS 5028 [sym_kProtected; sym_kPrivate;
   sym_kStrict; sym_kRequired; sym_kOptional]; ACTIONS 1016 [sym_kStatic; sym_kVirtual;
   sym_kAbstract; sym_kDynamic; sym_kOverride; sym_kOverload; sym_kReintroduce; sym_kStdcall;
   sym_kCdecl; sym_kCppdecl; sym_kPascal; sym_kRegister; sym_kMwpascal];
   ACTIONS 11645 [sym_kMessage]; ACTIONS 11647 [sym_kDeprecated];
   ACTIONS 1016 [sym_kExperimental; sym_kPlatform; sym_kUnimplemented; sym_kCvar];
   ACTIONS 11649 [sym_kExport]; ACTIONS 1016 [sym_kFar; sym_kNear; sym_kSafecall; sym_kAssembler;
   sym_kNostackframe; sym_kInterrupt; sym_kNoreturn; sym_kIocheck; sym_kLocal; sym_kHardfloat;
   sym_kSoftfloat; sym_kMs_abi_default; sym_kMs_abi_cdecl; sym_kSaveregisters;
   sym_kSysv_abi_default; sym_kSysv_abi_cdecl; sym_kVectorcall; sym_kVarargs; sym_kWinapi];
   ACTIONS 11651 [sym_kAlias]; ACTIONS 5028 [sym_kCase; sym_kClass; sym_kConst; sym_kConstructor;
   sym_kDestructor; sym_kEnd; sym_kFunction]; ACTIONS 1016 [sym_kInline];
   ACTIONS 5028 [sym_kProcedure; sym_kProperty; sym_kResourcestring; sym_kThreadvar; sym_kType;
   sym_kVar]].

(** State 1779. *)
Definition ts_parse_table_1779 : parse_row :=
  [STATE 2875 [sym__ppIf]; STATE 2590 [sym__procAttributeNoExt];
   STATE 2591 [sym__procAttributesPp]; STATE 14895 [sym_procAttribute];
   STATE 1792 [aux_sym__declProc_repeat1]; ACTIONS 12586 [anon_sym_LBRACK];
   ACTIONS 5082 [aux_sym_ppUsesBlock_token1]; ACTIONS 3 [sym__space];
   ACTIONS 5 [sym_ppDirective]; ACTIONS 3 [sym_comment]; ACTIONS 1016 [sym_kDefault;
   sym_kNodefault]; ACTIONS 11641 [sym_kDispId]; ACTIONS 5075 [sym_kGeneric; sym_kOperator;
   sym_kPublished]; ACTIONS 5091 [sym_kPublic]; ACTIONS 5075 [sym_kProtected; sym_kPrivate;
   sym_kStrict; sym_kRequired; sym_kOptional]; ACTIONS 1016 [sym_kStatic; sym_kVirtual;
   sym_kAbstract; sym_kDynamic; sym_kOverride; sym_kOverload; sym_kReintroduce; sym_kStdcall;
   sym_kCdecl; sym_kCppdecl; sym_kPascal; sym_kRegister; sym_kMwpascal];
   ACTIONS 11645 [sym_kMessage]; ACTIONS 11647 [sym_kDeprecated];
   ACTIONS 1016 [sym_kExperimental; sym_kPlatform; sym_kUnimplemented; sym_kCvar];
   ACTIONS 11649 [sym_kExport]; ACTIONS 1016 [sym_kFar; sym_kNear; sym_kSafecall; sym_kAssembler;
   sym_kNostackframe; sym_kInterrupt; sym_kNoreturn; sym_kIocheck; sym_kLocal; sym_kHardfloat;
   sym_kSoftfloat; sym_kMs_abi_default; sym_kMs_abi_cdecl; sym_kSaveregisters;
   sym_kSysv_abi_default; sym_kSysv_abi_cdecl; sym_kVectorcall; sym_kVarargs; sym_kWinapi];
   ACTIONS 11651 [sym_kAlias]; ACTIONS 5075 [sym_kCase; sym_kClass; sym_kConst; sym_kConstructor;
   sym_kDestructor; sym_kEnd; sym_kFunction]; ACTIONS 1016 [sym_kInline];
   ACTIONS 5075 [sym_kProcedure; sym_kProperty; sym_kResourcestring; sym_kThreadvar; sym_kType;
   sym_kVar]].

(** State 1780. *)
Definition ts_parse_table_1780 : parse_row :=
  [STATE 2875 [sym__ppIf]; STATE 2590 [sym__procAttributeNoExt];
   STATE 2591 [sym__procAttributesPp]; STATE 14895 [sym_procAttribute];
   STATE 1794 [aux_sym__declProc_repeat1]; ACTIONS 12589 [anon_sym_LBRACK];
   ACTIONS 5832 [aux_sym_ppUsesBlock_token1]; ACTIONS 3 [sym__space];
   ACTIONS 5 [sym_ppDirective]; ACTIONS 3 [sym_comment]; ACTIONS 1016 [sym_kDefault;
   sym_kNodefault]; ACTIONS 11641 [sym_kDispId]; ACTIONS 5825 [sym_kGeneric; sym_kOperator;
   sym_kPublished]; ACTIONS 5841 [sym_kPublic]; ACTIONS 5825 [sym_kProtected; sym_kPrivate;
   sym_kStrict; sym_kRequired; sym_kOptional]; ACTIONS 1016 [sym_kStatic; sym_kVirtual;
   sym_kAbstract; sym_kDynamic; sym_kOverride; sym_kOverload; sym_kReintroduce; sym_kStdcall;
   sym_kCdecl; sym_kCppdecl; sym_kPascal; sym_kRegister; sym_kMwpascal];
   ACTIONS 11645 [sym_kMessage]; ACTIONS 11647 [sym_kDeprecated];
   ACTIONS 1016 [sym_kExperimental; sym_kPlatform; sym_kUnimplemented; sym_kCvar];
   ACTIONS 11649 [sym_kExport]; ACTIONS 1016 [sym_kFar; sym_kNear; sym_kSafecall; sym_kAssembler;
   sym_kNostackframe; sym_kInterrupt; sym_kNoreturn; sym_kIocheck; sym_kLocal; sym_kHardfloat;
   sym_kSoftfloat; sym_kMs_abi_default; sym_kMs_abi_cdecl; sym_kSaveregisters;
   sym_kSysv_abi_default; sym_kSysv_abi_cdecl; sym_kVectorcall; sym_kVarargs; sym_kWinapi];
   ACTIONS 11651 [sym_kAlias]; ACTIONS 5825 [sym_kCase; sym_kClass; sym_kConst; sym_kConstructor;
   sym_kDestructor; sym_kEnd; sym_kFunction]; ACTIONS 1016 [sym_kInline];
   ACTIONS 5825 [sym_kProcedure; sym_kProperty; sym_kResourcestring; sym_kThreadvar; sym_kType;
   sym_kVar]].

(** State 1781. *)
Definition ts_parse_table_1781 : parse_row :=
  [STATE 2875 [sym__ppIf]; STATE 2590 [sym__procAttributeNoExt];
   STATE 2591 [sym__procAttributesPp]; STATE 14895 [sym_procAttribute];
   STATE 1796 [aux_sym__declProc_repeat1]; ACTIONS 12592 [anon_sym_LBRACK];
   ACTIONS 5866 [aux_sym_ppUsesBlock_token1]; ACTIONS 3 [sym__space];
   ACTIONS 5 [sym_ppDirective]; ACTIONS 3 [sym_comment]; ACTIONS 1016 [sym_kDefault;
   sym_kNodefault]; ACTIONS 11641 [sym_kDispId]; ACTIONS 5859 [sym_kGeneric; sym_kOperator;
   sym_kPublished]; ACTIONS 5875 [sym_kPublic]; ACTIONS 5859 [sym_kProtected; sym_kPrivate;
   sym_kStrict; sym_kRequired; sym_kOptional]; ACTIONS 1016 [sym_kStatic; sym_kVirtual;
   sym_kAbstract; sym_kDynamic; sym_kOverride; sym_kOverload; sym_kReintroduce; sym_kStdcall;
   sym_kCdecl; sym_kCppdecl; sym_kPascal; sym_kRegister; sym_kMwpascal];
   ACTIONS 11645 [sym_kMessage]; ACTIONS 11647 [sym_kDeprecated];
   ACTIONS 1016 [sym_kExperimental; sym_kPlatform; sym_kUnimplemented; sym_kCvar];
   ACTIONS 11649 [sym_kExport]; ACTIONS 1016 [sym_kFar; sym_kNear; sym_kSafecall; sym_kAssembler;
   sym_kNostackframe; sym_kInterrupt; sym_kNoreturn; sym_kIocheck; sym_kLocal; sym_kHardfloat;
   sym_kSoftfloat; sym_kMs_abi_default; sym_kMs_abi_cdecl; sym_kSaveregisters;
   sym_kSysv_abi_default; sym_kSysv_abi_cdecl; sym_kVectorcall; sym_kVarargs; sym_kWinapi];
   ACTIONS 11651 [sym_kAlias]; ACTIONS 5859 [sym_kCase; sym_kClass; sym_kConst; sym_kConstructor;
   sym_kDestructor; sym_kEnd; sym_kFunction]; ACTIONS 1016 [sym_kInline];
   ACTIONS 5859 [sym_kProcedure; sym_kProperty; sym_kResourcestring; sym_kThreadvar; sym_kType;
   sym_kVar]].

(** State 1782. *)
Definition ts_parse_table_1782 : parse_row :=
  [STATE 2875 [sym__ppIf]; STATE 2590 [sym__procAttributeNoExt];
   STATE 2591 [sym__procAttributesPp]; STATE 14895 [sym_procAttribute];
   STATE 1901 [aux_sym__declProc_repeat1]; ACTIONS 12595 [anon_sym_LBRACK];
   ACTIONS 6034 [aux_sym_ppUsesBlock_token1]; ACTIONS 3 [sym__space];
   ACTIONS 5 [sym_ppDirective]; ACTIONS 3 [sym_comment]; ACTIONS 1016 [sym_kDefault;
   sym_kNodefault]; ACTIONS 11641 [sym_kDispId]; ACTIONS 6027 [sym_kGeneric; sym_kOperator;
   sym_kPublished]; ACTIONS 6043 [sym_kPublic]; ACTIONS 6027 [sym_kProtected; sym_kPrivate;
   sym_kStrict; sym_kRequired; sym_kOptional]; ACTIONS 1016 [sym_kStatic; sym_kVirtual;
   sym_kAbstract; sym_kDynamic; sym_kOverride; sym_kOverload; sym_kReintroduce; sym_kStdcall;
   sym_kCdecl; sym_kCppdecl; sym_kPascal; sym_kRegister; sym_kMwpascal];
   ACTIONS 11645 [sym_kMessage]; ACTIONS 11647 [sym_kDeprecated];
   ACTIONS 1016 [sym_kExperimental; sym_kPlatform; sym_kUnimplemented; sym_kCvar];
   ACTIONS 11649 [sym_kExport]; ACTIONS 1016 [sym_kFar; sym_kNear; sym_kSafecall; sym_kAssembler;
   sym_kNostackframe; sym_kInterrupt; sym_kNoreturn; sym_kIocheck; sym_kLocal; sym_kHardfloat;
   sym_kSoftfloat; sym_kMs_abi_default; sym_kMs_abi_cdecl; sym_kSaveregisters;
   sym_kSysv_abi_default; sym_kSysv_abi_cdecl; sym_kVectorcall; sym_kVarargs; sym_kWinapi];
   ACTIONS 11651 [sym_kAlias]; ACTIONS 6027 [sym_kCase; sym_kClass; sym_kConst; sym_kConstructor;
   sym_kDestructor; sym_kEnd; sym_kFunction]; ACTIONS 1016 [sym_kInline];
   ACTIONS 6027 [sym_kProcedure; sym_kProperty; sym_kResourcestring; sym_kThreadvar; sym_kType;
   sym_kVar]].

(** State 1783. *)
Definition ts_parse_table_1783 : parse_row :=
  [STATE 2875 [sym__ppIf]; STATE 2590 [sym__procAttributeNoExt];
   STATE 2591 [sym__procAttributesPp]; STATE 14895 [sym_procAttribute];
   STATE 1901 [aux_sym__declProc_repeat1]; ACTIONS 12598 [anon_sym_LBRACK];
   ACTIONS 6433 [aux_sym_ppUsesBlock_token1]; ACTIONS 3 [sym__space];
   ACTIONS 5 [sym_ppDirective]; ACTIONS 3 [sym_comment]; ACTIONS 1016 [sym_kDefault;
   sym_kNodefault]; ACTIONS 11641 [sym_kDispId]; ACTIONS 6426 [sym_kGeneric; sym_kOperator;
   sym_kPublished]; ACTIONS 6442 [sym_kPublic]; ACTIONS 6426 [sym_kProtected; sym_kPrivate;
   sym_kStrict; sym_kRequired; sym_kOptional]; ACTIONS 1016 [sym_kStatic; sym_kVirtual;
   sym_kAbstract; sym_kDynamic; sym_kOverride; sym_kOverload; sym_kReintroduce; sym_kStdcall;
   sym_kCdecl; sym_kCppdecl; sym_kPascal; sym_kRegister; sym_kMwpascal];
   ACTIONS 11645 [sym_kMessage]; ACTIONS 11647 [sym_kDeprecated];
   ACTIONS 1016 [sym_kExperimental; sym_kPlatform; sym_kUnimplemented; sym_kCvar];
   ACTIONS 11649 [sym_kExport]; ACTIONS 1016 [sym_kFar; sym_kNear; sym_kSafecall; sym_kAssembler;
   sym_kNostackframe; sym_kInterrupt; sym_kNoreturn; sym_kIocheck; sym_kLocal; sym_kHardfloat;
   sym_kSoftfloat; sym_kMs_abi_default; sym_kMs_abi_cdecl; sym_kSaveregisters;
   sym_kSysv_abi_default; sym_kSysv_abi_cdecl; sym_kVectorcall; sym_kVarargs; sym_kWinapi];
   ACTIONS 11651 [sym_kAlias]; ACTIONS 6426 [sym_kCase; sym_kClass; sym_kConst; sym_kConstructor;
   sym_kDestructor; sym_kEnd; sym_kFunction]; ACTIONS 1016 [sym_kInline];
   ACTIONS 6426 [sym_kProcedure; sym_kProperty; sym_kResourcestring; sym_kThreadvar; sym_kType;
   sym_kVar]].

(** State 1784. *)
Definition ts_parse_table_1784 : parse_row :=
  [STATE 2875 [sym__ppIf]; STATE 2590 [sym__procAttributeNoExt];
   STATE 2591 [sym__procAttributesPp]; STATE 14895 [sym_procAttribute];
   STATE 1798 [aux_sym__declProc_repeat1]; ACTIONS 12601 [anon_sym_LBRACK];
   ACTIONS 7007 [aux_sym_ppUsesBlock_token1]; ACTIONS 3 [sym__space];
   ACTIONS 5 [sym_ppDirective]; ACTIONS 3 [sym_comment]; ACTIONS 1016 [sym_kDefault;
   sym_kNodefault]; ACTIONS 11641 [sym_kDispId]; ACTIONS 7000 [sym_kGeneric; sym_kOperator;
   sym_kPublished]; ACTIONS 7016 [sym_kPublic]; ACTIONS 7000 [sym_kProtected; sym_kPrivate;
   sym_kStrict; sym_kRequired; sym_kOptional]; ACTIONS 1016 [sym_kStatic; sym_kVirtual;
   sym_kAbstract; sym_kDynamic; sym_kOverride; sym_kOverload; sym_kReintroduce; sym_kStdcall;
   sym_kCdecl; sym_kCppdecl; sym_kPascal; sym_kRegister; sym_kMwpascal];
   ACTIONS 11645 [sym_kMessage]; ACTIONS 11647 [sym_kDeprecated];
   ACTIONS 1016 [sym_kExperimental; sym_kPlatform; sym_kUnimplemented; sym_kCvar];
   ACTIONS 11649 [sym_kExport]; ACTIONS 1016 [sym_kFar; sym_kNear; sym_kSafecall; sym_kAssembler;
   sym_kNostackframe; sym_kInterrupt; sym_kNoreturn; sym_kIocheck; sym_kLocal; sym_kHardfloat;
   sym_kSoftfloat; sym_kMs_abi_default; sym_kMs_abi_cdecl; sym_kSaveregisters;
   sym_kSysv_abi_default; sym_kSysv_abi_cdecl; sym_kVectorcall; sym_kVarargs; sym_kWinapi];
   ACTIONS 11651 [sym_kAlias]; ACTIONS 7000 [sym_kCase; sym_kClass; sym_kConst; sym_kConstructor;
   sym_kDestructor; sym_kEnd; sym_kFunction]; ACTIONS 1016 [sym_kInline];
   ACTIONS 7000 [sym_kProcedure; sym_kProperty; sym_kResourcestring; sym_kThreadvar; sym_kType;
   sym_kVar]].

(** State 1785. *)
Definition ts_parse_table_1785 : parse_row :=
  [STATE 2875 [sym__ppIf]; STATE 2590 [sym__procAttributeNoExt];
   STATE 2591 [sym__procAttributesPp]; STATE 14895 [sym_procAttribute];
   STATE 1901 [aux_sym__declProc_repeat1]; ACTIONS 12604 [anon_sym_LBRACK];
   ACTIONS 3859 [aux_sym_ppUsesBlock_token1]; ACTIONS 3 [sym__space];
   ACTIONS 5 [sym_ppDirective]; ACTIONS 3 [sym_comment]; ACTIONS 1016 [sym_kDefault;
   sym_kNodefault]; ACTIONS 11641 [sym_kDispId]; ACTIONS 3852 [sym_kGeneric; sym_kOperator;
   sym_kPublished]; ACTIONS 3868 [sym_kPublic]; ACTIONS 3852 [sym_kProtected; sym_kPrivate;
   sym_kStrict; sym_kRequired; sym_kOptional]; ACTIONS 1016 [sym_kStatic; sym_kVirtual;
   sym_kAbstract; sym_kDynamic; sym_kOverride; sym_kOverload; sym_kReintroduce; sym_kStdcall;
   sym_kCdecl; sym_kCppdecl; sym_kPascal; sym_kRegister; sym_kMwpascal];
   ACTIONS 11645 [sym_kMessage]; ACTIONS 11647 [sym_kDeprecated];
   ACTIONS 1016 [sym_kExperimental; sym_kPlatform; sym_kUnimplemented; sym_kCvar];
   ACTIONS 11649 [sym_kExport]; ACTIONS 1016 [sym_kFar; sym_kNear; sym_kSafecall; sym_kAssembler;
   sym_kNostackframe; sym_kInterrupt; sym_kNoreturn; sym_kIocheck; sym_kLocal; sym_kHardfloat;
   sym_kSoftfloat; sym_kMs_abi_default; sym_kMs_abi_cdecl; sym_kSaveregisters;
   sym_kSysv_abi_default; sym_kSysv_abi_cdecl; sym_kVectorcall; sym_kVarargs; sym_kWinapi];
   ACTIONS 11651 [sym_kAlias]; ACTIONS 3852 [sym_kCase; sym_kClass; sym_kConst; sym_kConstructor;
   sym_kDestructor; sym_kEnd; sym_kFunction]; ACTIONS 1016 [sym_kInline];
   ACTIONS 3852 [sym_kProcedure; sym_kProperty; sym_kResourcestring; sym_kThreadvar; sym_kType;
   sym_kVar]].

(** State 1786. *)
Definition ts_parse_table_1786 : parse_row :=
  [STATE 2875 [sym__ppIf]; STATE 2590 [sym__procAttributeNoExt];
   STATE 2591 [sym__procAttributesPp]; STATE 14895 [sym_procAttribute];
   STATE 1800 [aux_sym__declProc_repeat1]; ACTIONS 12607 [anon_sym_LBRACK];
   ACTIONS 3918 [aux_sym_ppUsesBlock_token1]; ACTIONS 3 [sym__space];
   ACTIONS 5 [sym_ppDirective]; ACTIONS 3 [sym_comment]; ACTIONS 1016 [sym_kDefault;
   sym_kNodefault]; ACTIONS 11641 [sym_kDispId]; ACTIONS 3911 [sym_kGeneric; sym_kOperator;
   sym_kPublished]; ACTIONS 3927 [sym_kPublic]; ACTIONS 3911 [sym_kProtected; sym_kPrivate;
   sym_kStrict; sym_kRequired; sym_kOptional]; ACTIONS 1016 [sym_kStatic; sym_kVirtual;
   sym_kAbstract; sym_kDynamic; sym_kOverride; sym_kOverload; sym_kReintroduce; sym_kStdcall;
   sym_kCdecl; sym_kCppdecl; sym_kPascal; sym_kRegister; sym_kMwpascal];
   ACTIONS 11645 [sym_kMessage]; ACTIONS 11647 [sym_kDeprecated];
   ACTIONS 1016 [sym_kExperimental; sym_kPlatform; sym_kUnimplemented; sym_kCvar];
   ACTIONS 11649 [sym_kExport]; ACTIONS 1016 [sym_kFar; sym_kNear; sym_kSafecall; sym_kAssembler;
   sym_kNostackframe; sym_kInterrupt; sym_kNoreturn; sym_kIocheck; sym_kLocal; sym_kHardfloat;
   sym_kSoftfloat; sym_kMs_abi_default; sym_kMs_abi_cdecl; sym_kSaveregisters;
   sym_kSysv_abi_default; sym_kSysv_abi_cdecl; sym_kVectorcall; sym_kVarargs; sym_kWinapi];
   ACTIONS 11651 [sym_kAlias]; ACTIONS 3911 [sym_kCase; sym_kClass; sym_kConst; sym_kConstructor;
   sym_kDestructor; sym_kEnd; sym_kFunction]; ACTIONS 1016 [sym_kInline];
   ACTIONS 3911 [sym_kProcedure; sym_kProperty; sym_kResourcestring; sym_kThreadvar; sym_kType;
   sym_kVar]].

(** State 1787. *)
Definition ts_parse_table_1787 : parse_row :=
  [STATE 2875 [sym__ppIf]; STATE 2590 [sym__procAttributeNoExt];
   STATE 2591 [sym__procAttributesPp]; STATE 14895 [sym_procAttribute];
   STATE 1801 [aux_sym__declProc_repeat1]; ACTIONS 12610 [anon_sym_LBRACK];
   ACTIONS 4120 [aux_sym_ppUsesBlock_token1]; ACTIONS 3 [sym__space];
   ACTIONS 5 [sym_ppDirective]; ACTIONS 3 [sym_comment]; ACTIONS 1016 [sym_kDefault;
   sym_kNodefault]; ACTIONS 11641 [sym_kDispId]; ACTIONS 4113 [sym_kGeneric; sym_kOperator;
   sym_kPublished]; ACTIONS 4129 [sym_kPublic]; ACTIONS 4113 [sym_kProtected; sym_kPrivate;
   sym_kStrict; sym_kRequired; sym_kOptional]; ACTIONS 1016 [sym_kStatic; sym_kVirtual;
   sym_kAbstract; sym_kDynamic; sym_kOverride; sym_kOverload; sym_kReintroduce; sym_kStdcall;
   sym_kCdecl; sym_kCppdecl; sym_kPascal; sym_kRegister; sym_kMwpascal];
   ACTIONS 11645 [sym_kMessage]; ACTIONS 11647 [sym_kDeprecated];
   ACTIONS 1016 [sym_kExperimental; sym_kPlatform; sym_kUnimplemented; sym_kCvar];
   ACTIONS 11649 [sym_kExport]; ACTIONS 1016 [sym_kFar; sym_kNear; sym_kSafecall; sym_kAssembler;
   sym_kNostackframe; sym_kInterrupt; sym_kNoreturn; sym_kIocheck; sym_kLocal; sym_kHardfloat;
   sym_kSoftfloat; sym_kMs_abi_default; sym_kMs_abi_cdecl; sym_kSaveregisters;
   sym_kSysv_abi_default; sym_kSysv_abi_cdecl; sym_kVectorcall; sym_kVarargs; sym_kWinapi];
   ACTIONS 11651 [sym_kAlias]; ACTIONS 4113 [sym_kCase; sym_kClass; sym_kConst; sym_kConstructor;
   sym_kDestructor; sym_kEnd; sym_kFunction]; ACTIONS 1016 [sym_kInline];
   ACTIONS 4113 [sym_kProcedure; sym_kProperty; sym_kResourcestring; sym_kThreadvar; sym_kType;
   sym_kVar]].

(** State 1788. *)
Definition ts_parse_table_1788 : parse_row :=
  [STATE 2875 [sym__ppIf]; STATE 2590 [sym__procAttributeNoExt];
   STATE 2591 [sym__procAttributesPp]; STATE 14895 [sym_procAttribute];
   STATE 1901 [aux_sym__declProc_repeat1]; ACTIONS 12613 [anon_sym_LBRACK];
   ACTIONS 4154 [aux_sym_ppUsesBlock_token1]; ACTIONS 3 [sym__space];
   ACTIONS 5 [sym_ppDirective]; ACTIONS 3 [sym_comment]; ACTIONS 1016 [sym_kDefault;
   sym_kNodefault]; ACTIONS 11641 [sym_kDispId]; ACTIONS 4147 [sym_kGeneric; sym_kOperator;
   sym_kPublished]; ACTIONS 4163 [sym_kPublic]; ACTIONS 4147 [sym_kProtected; sym_kPrivate;
   sym_kStrict; sym_kRequired; sym_kOptional]; ACTIONS 1016 [sym_kStatic; sym_kVirtual;
   sym_kAbstract; sym_kDynamic; sym_kOverride; sym_kOverload; sym_kReintroduce; sym_kStdcall;
   sym_kCdecl; sym_kCppdecl; sym_kPascal; sym_kRegister; sym_kMwpascal];
   ACTIONS 11645 [sym_kMessage]; ACTIONS 11647 [sym_kDeprecated];
   ACTIONS 1016 [sym_kExperimental; sym_kPlatform; sym_kUnimplemented; sym_kCvar];
   ACTIONS 11649 [sym_kExport]; ACTIONS 1016 [sym_kFar; sym_kNear; sym_kSafecall; sym_kAssembler;
   sym_kNostackframe; sym_kInterrupt; sym_kNoreturn; sym_kIocheck; sym_kLocal; sym_kHardfloat;
   sym_kSoftfloat; sym_kMs_abi_default; sym_kMs_abi_cdecl; sym_kSaveregisters;
   sym_kSysv_abi_default; sym_kSysv_abi_cdecl; sym_kVectorcall; sym_kVarargs; sym_kWinapi];
   ACTIONS 11651 [sym_kAlias]; ACTIONS 4147 [sym_kCase; sym_kClass; sym_kConst; sym_kConstructor;
   sym_kDestructor; sym_kEnd; sym_kFunction]; ACTIONS 1016 [sym_kInline];
   ACTIONS 4147 [sym_kProcedure; sym_kProperty; sym_kResourcestring; sym_kThreadvar; sym_kType;
   sym_kVar]].

(** State 1789. *)
Definition ts_parse_table_1789 : parse_row :=
  [STATE 2875 [sym__ppIf]; STATE 2590 [sym__procAttributeNoExt];
   STATE 2591 [sym__procAttributesPp]; STATE 14895 [sym_procAttribute];
   STATE 1901 [aux_sym__declProc_repeat1]; ACTIONS 12616 [anon_sym_LBRACK];
   ACTIONS 4344 [aux_sym_ppUsesBlock_token1]; ACTIONS 3 [sym__space];
   ACTIONS 5 [sym_ppDirective]; ACTIONS 3 [sym_comment]; ACTIONS 1016 [sym_kDefault;
   sym_kNodefault]; ACTIONS 11641 [sym_kDispId]; ACTIONS 4337 [sym_kGeneric; sym_kOperator;
   sym_kPublished]; ACTIONS 4353 [sym_kPublic]; ACTIONS 4337 [sym_kProtected; sym_kPrivate;
   sym_kStrict; sym_kRequired; sym_kOptional]; ACTIONS 1016 [sym_kStatic; sym_kVirtual;
   sym_kAbstract; sym_kDynamic; sym_kOverride; sym_kOverload; sym_kReintroduce; sym_kStdcall;
   sym_kCdecl; sym_kCppdecl; sym_kPascal; sym_kRegister; sym_kMwpascal];
   ACTIONS 11645 [sym_kMessage]; ACTIONS 11647 [sym_kDeprecated];
   ACTIONS 1016 [sym_kExperimental; sym_kPlatform; sym_kUnimplemented; sym_kCvar];
   ACTIONS 11649 [sym_kExport]; ACTIONS 1016 [sym_kFar; sym_kNear; sym_kSafecall; sym_kAssembler;
   sym_kNostackframe; sym_kInterrupt; sym_kNoreturn; sym_kIocheck; sym_kLocal; sym_kHardfloat;
   sym_kSoftfloat; sym_kMs_abi_default; sym_kMs_abi_cdecl; sym_kSaveregisters;
   sym_kSysv_abi_default; sym_kSysv_abi_cdecl; sym_kVectorcall; sym_kVarargs; sym_kWinapi];
   ACTIONS 11651 [sym_kAlias]; ACTIONS 4337 [sym_kCase; sym_kClass; sym_kConst; sym_kConstructor;
   sym_kDestructor; sym_kEnd; sym_kFunction]; ACTIONS 1016 [sym_kInline];
   ACTIONS 4337 [sym_kProcedure; sym_kProperty; sym_kResourcestring; sym_kThreadvar; sym_kType;
   sym_kVar]].

(** State 1790. *)
Definition ts_parse_table_1790 : parse_row :=
  [STATE 2875 [sym__ppIf]; STATE 2590 [sym__procAttributeNoExt];
   STATE 2591 [sym__procAttributesPp]; STATE 14895 [sym_procAttribute];
   STATE 1804 [aux_sym__declProc_repeat1]; ACTIONS 12619 [anon_sym_LBRACK];
   ACTIONS 4413 [aux_sym_ppUsesBlock_token1]; ACTIONS 3 [sym__space];
   ACTIONS 5 [sym_ppDirective]; ACTIONS 3 [sym_comment]; ACTIONS 1016 [sym_kDefault;
   sym_kNodefault]; ACTIONS 11641 [sym_kDispId]; ACTIONS 4406 [sym_kGeneric; sym_kOperator;
   sym_kPublished]; ACTIONS 4422 [sym_kPublic]; ACTIONS 4406 [sym_kProtected; sym_kPrivate;
   sym_kStrict; sym_kRequired; sym_kOptional]; ACTIONS 1016 [sym_kStatic; sym_kVirtual;
   sym_kAbstract; sym_kDynamic; sym_kOverride; sym_kOverload; sym_kReintroduce; sym_kStdcall;
   sym_kCdecl; sym_kCppdecl; sym_kPascal; sym_kRegister; sym_kMwpascal];
   ACTIONS 11645 [sym_kMessage]; ACTIONS 11647 [sym_kDeprecated];
   ACTIONS 1016 [sym_kExperimental; sym_kPlatform; sym_kUnimplemented; sym_kCvar];
   ACTIONS 11649 [sym_kExport]; ACTIONS 1016 [sym_kFar; sym_kNear; sym_kSafecall; sym_kAssembler;
   sym_kNostackframe; sym_kInterrupt; sym_kNoreturn; sym_kIocheck; sym_kLocal; sym_kHardfloat;
   sym_kSoftfloat; sym_kMs_abi_default; sym_kMs_abi_cdecl; sym_kSaveregisters;
   sym_kSysv_abi_default; sym_kSysv_abi_cdecl; sym_kVectorcall; sym_kVarargs; sym_kWinapi];
   ACTIONS 11651 [sym_kAlias]; ACTIONS 4406 [sym_kCase; sym_kClass; sym_kConst; sym_kConstructor;
   sym_kDestructor; sym_kEnd; sym_kFunction]; ACTIONS 1016 [sym_kInline];
   ACTIONS 4406 [sym_kProcedure; sym_kProperty; sym_kResourcestring; sym_kThreadvar; sym_kType;
   sym_kVar]].

(** State 1791. *)
Definition ts_parse_table_1791 : parse_row :=
  [STATE 2875 [sym__ppIf]; STATE 2590 [sym__procAttributeNoExt];
   STATE 2591 [sym__procAttributesPp]; STATE 14895 [sym_procAttribute];
   STATE 1805 [aux_sym__declProc_repeat1]; ACTIONS 12622 [anon_sym_LBRACK];
   ACTIONS 4709 [aux_sym_ppUsesBlock_token1]; ACTIONS 3 [sym__space];
   ACTIONS 5 [sym_ppDirective]; ACTIONS 3 [sym_comment]; ACTIONS 1016 [sym_kDefault;
   sym_kNodefault]; ACTIONS 11641 [sym_kDispId]; ACTIONS 4702 [sym_kGeneric; sym_kOperator;
   sym_kPublished]; ACTIONS 4718 [sym_kPublic]; ACTIONS 4702 [sym_kProtected; sym_kPrivate;
   sym_kStrict; sym_kRequired; sym_kOptional]; ACTIONS 1016 [sym_kStatic; sym_kVirtual;
   sym_kAbstract; sym_kDynamic; sym_kOverride; sym_kOverload; sym_kReintroduce; sym_kStdcall;
   sym_kCdecl; sym_kCppdecl; sym_kPascal; sym_kRegister; sym_kMwpascal];
   ACTIONS 11645 [sym_kMessage]; ACTIONS 11647 [sym_kDeprecated];
   ACTIONS 1016 [sym_kExperimental; sym_kPlatform; sym_kUnimplemented; sym_kCvar];
   ACTIONS 11649 [sym_kExport]; ACTIONS 1016 [sym_kFar; sym_kNear; sym_kSafecall; sym_kAssembler;
   sym_kNostackframe; sym_kInterrupt; sym_kNoreturn; sym_kIocheck; sym_kLocal; sym_kHardfloat;
   sym_kSoftfloat; sym_kMs_abi_default; sym_kMs_abi_cdecl; sym_kSaveregisters;
   sym_kSysv_abi_default; sym_kSysv_abi_cdecl; sym_kVectorcall; sym_kVarargs; sym_kWinapi];
   ACTIONS 11651 [sym_kAlias]; ACTIONS 4702 [sym_kCase; sym_kClass; sym_kConst; sym_kConstructor;
   sym_kDestructor; sym_kEnd; sym_kFunction]; ACTIONS 1016 [sym_kInline];
   ACTIONS 4702 [sym_kProcedure; sym_kProperty; sym_kResourcestring; sym_kThreadvar; sym_kType;
   sym_kVar]].

(** State 1792. *)
Definition ts_parse_table_1792 : parse_row :=
  [STATE 2875 [sym__ppIf]; STATE 2590 [sym__procAttributeNoExt];
   STATE 2591 [sym__procAttributesPp]; STATE 14895 [sym_procAttribute];
   STATE 1901 [aux_sym__declProc_repeat1]; ACTIONS 12625 [anon_sym_LBRACK];
   ACTIONS 4827 [aux_sym_ppUsesBlock_token1]; ACTIONS 3 [sym__space];
   ACTIONS 5 [sym_ppDirective]; ACTIONS 3 [sym_comment]; ACTIONS 1016 [sym_kDefault;
   sym_kNodefault]; ACTIONS 11641 [sym_kDispId]; ACTIONS 4820 [sym_kGeneric; sym_kOperator;
   sym_kPublished]; ACTIONS 4836 [sym_kPublic]; ACTIONS 4820 [sym_kProtected; sym_kPrivate;
   sym_kStrict; sym_kRequired; sym_kOptional]; ACTIONS 1016 [sym_kStatic; sym_kVirtual;
   sym_kAbstract; sym_kDynamic; sym_kOverride; sym_kOverload; sym_kReintroduce; sym_kStdcall;
   sym_kCdecl; sym_kCppdecl; sym_kPascal; sym_kRegister; sym_kMwpascal];
   ACTIONS 11645 [sym_kMessage]; ACTIONS 11647 [sym_kDeprecated];
   ACTIONS 1016 [sym_kExperimental; sym_kPlatform; sym_kUnimplemented; sym_kCvar];
   ACTIONS 11649 [sym_kExport]; ACTIONS 1016 [sym_kFar; sym_kNear; sym_kSafecall; sym_kAssembler;
   sym_kNostackframe; sym_kInterrupt; sym_kNoreturn; sym_kIocheck; sym_kLocal; sym_kHardfloat;
   sym_kSoftfloat; sym_kMs_abi_default; sym_kMs_abi_cdecl; sym_kSaveregisters;
   sym_kSysv_abi_default; sym_kSysv_abi_cdecl; sym_kVectorcall; sym_kVarargs; sym_kWinapi];
   ACTIONS 11651 [sym_kAlias]; ACTIONS 4820 [sym_kCase; sym_kClass; sym_kConst; sym_kConstructor;
   sym_kDestructor; sym_kEnd; sym_kFunction]; ACTIONS 1016 [sym_kInline];
   ACTIONS 4820 [sym_kProcedure; sym_kProperty; sym_kResourcestring; sym_kThreadvar; sym_kType;
   sym_kVar]].

(** State 1793. *)
Definition ts_parse_table_1793 : parse_row :=
  [STATE 2875 [sym__ppIf]; STATE 2590 [sym__procAttributeNoExt];
   STATE 2591 [sym__procAttributesPp]; STATE 14895 [sym_procAttribute];
   STATE 1807 [aux_sym__declProc_repeat1]; ACTIONS 12628 [anon_sym_LBRACK];
   ACTIONS 5197 [aux_sym_ppUsesBlock_token1]; ACTIONS 3 [sym__space];
   ACTIONS 5 [sym_ppDirective]; ACTIONS 3 [sym_comment]; ACTIONS 1016 [sym_kDefault;
   sym_kNodefault]; ACTIONS 11641 [sym_kDispId]; ACTIONS 5190 [sym_kGeneric; sym_kOperator;
   sym_kPublished]; ACTIONS 5206 [sym_kPublic]; ACTIONS 5190 [sym_kProtected; sym_kPrivate;
   sym_kStrict; sym_kRequired; sym_kOptional]; ACTIONS 1016 [sym_kStatic; sym_kVirtual;
   sym_kAbstract; sym_kDynamic; sym_kOverride; sym_kOverload; sym_kReintroduce; sym_kStdcall;
   sym_kCdecl; sym_kCppdecl; sym_kPascal; sym_kRegister; sym_kMwpascal];
   ACTIONS 11645 [sym_kMessage]; ACTIONS 11647 [sym_kDeprecated];
   ACTIONS 1016 [sym_kExperimental; sym_kPlatform; sym_kUnimplemented; sym_kCvar];
   ACTIONS 11649 [sym_kExport]; ACTIONS 1016 [sym_kFar; sym_kNear; sym_kSafecall; sym_kAssembler;
   sym_kNostackframe; sym_kInterrupt; sym_kNoreturn; sym_kIocheck; sym_kLocal; sym_kHardfloat;
   sym_kSoftfloat; sym_kMs_abi_default; sym_kMs_abi_cdecl; sym_kSaveregisters;
   sym_kSysv_abi_default; sym_kSysv_abi_cdecl; sym_kVectorcall; sym_kVarargs; sym_kWinapi];
   ACTIONS 11651 [sym_kAlias]; ACTIONS 5190 [sym_kCase; sym_kClass; sym_kConst; sym_kConstructor;
   sym_kDestructor; sym_kEnd; sym_kFunction]; ACTIONS 1016 [sym_kInline];
   ACTIONS 5190 [sym_kProcedure; sym_kProperty; sym_kResourcestring; sym_kThreadvar; sym_kType;
   sym_kVar]].

(** State 1794. *)
Definition ts_parse_table_1794 : parse_row :=
  [STATE 2875 [sym__ppIf]; STATE 2590 [sym__procAttributeNoExt];
   STATE 2591 [sym__procAttributesPp]; STATE 14895 [sym_procAttribute];
   STATE 1901 [aux_sym__declProc_repeat1]; ACTIONS 12631 [anon_sym_LBRACK];
   ACTIONS 5284 [aux_sym_ppUsesBlock_token1]; ACTIONS 3 [sym__space];
   ACTIONS 5 [sym_ppDirective]; ACTIONS 3 [sym_comment]; ACTIONS 1016 [sym_kDefault;
   sym_kNodefault]; ACTIONS 11641 [sym_kDispId]; ACTIONS 5277 [sym_kGeneric; sym_kOperator;
   sym_kPublished]; ACTIONS 5293 [sym_kPublic]; ACTIONS 5277 [sym_kProtected; sym_kPrivate;
   sym_kStrict; sym_kRequired; sym_kOptional]; ACTIONS 1016 [sym_kStatic; sym_kVirtual;
   sym_kAbstract; sym_kDynamic; sym_kOverride; sym_kOverload; sym_kReintroduce; sym_kStdcall;
   sym_kCdecl; sym_kCppdecl; sym_kPascal; sym_kRegister; sym_kMwpascal];
   ACTIONS 11645 [sym_kMessage]; ACTIONS 11647 [sym_kDeprecated];
   ACTIONS 1016 [sym_kExperimental; sym_kPlatform; sym_kUnimplemented; sym_kCvar];
   ACTIONS 11649 [sym_kExport]; ACTIONS 1016 [sym_kFar; sym_kNear; sym_kSafecall; sym_kAssembler;
   sym_kNostackframe; sym_kInterrupt; sym_kNoreturn; sym_kIocheck; sym_kLocal; sym_kHardfloat;
   sym_kSoftfloat; sym_kMs_abi_default; sym_kMs_abi_cdecl; sym_kSaveregisters;
   sym_kSysv_abi_default; sym_kSysv_abi_cdecl; sym_kVectorcall; sym_kVarargs; sym_kWinapi];
   ACTIONS 11651 [sym_kAlias]; ACTIONS 5277 [sym_kCase; sym_kClass; sym_kConst; sym_kConstructor;
   sym_kDestructor; sym_kEnd; sym_kFunction]; ACTIONS 1016 [sym_kInline];
   ACTIONS 5277 [sym_kProcedure; sym_kProperty; sym_kResourcestring; sym_kThreadvar; sym_kType;
   sym_kVar]].

(** State 1795. *)
Definition ts_parse_table_1795 : parse_row :=
  [STATE 2875 [sym__ppIf]; STATE 2590 [sym__procAttributeNoExt];
   STATE 2591 [sym__procAttributesPp]; STATE 14895 [sym_procAttribute];
   STATE 1810 [aux_sym__declProc_repeat1]; ACTIONS 12634 [anon_sym_LBRACK];
   ACTIONS 5574 [aux_sym_ppUsesBlock_token1]; ACTIONS 3 [sym__space];
   ACTIONS 5 [sym_ppDirective]; ACTIONS 3 [sym_comment]; ACTIONS 1016 [sym_kDefault;
   sym_kNodefault]; ACTIONS 11641 [sym_kDispId]; ACTIONS 5567 [sym_kGeneric; sym_kOperator;
   sym_kPublished]; ACTIONS 5583 [sym_kPublic]; ACTIONS 5567 [sym_kProtected; sym_kPrivate;
   sym_kStrict; sym_kRequired; sym_kOptional]; ACTIONS 1016 [sym_kStatic; sym_kVirtual;
   sym_kAbstract; sym_kDynamic; sym_kOverride; sym_kOverload; sym_kReintroduce; sym_kStdcall;
   sym_kCdecl; sym_kCppdecl; sym_kPascal; sym_kRegister; sym_kMwpascal];
   ACTIONS 11645 [sym_kMessage]; ACTIONS 11647 [sym_kDeprecated];
   ACTIONS 1016 [sym_kExperimental; sym_kPlatform; sym_kUnimplemented; sym_kCvar];
   ACTIONS 11649 [sym_kExport]; ACTIONS 1016 [sym_kFar; sym_kNear; sym_kSafecall; sym_kAssembler;
   sym_kNostackframe; sym_kInterrupt; sym_kNoreturn; sym_kIocheck; sym_kLocal; sym_kHardfloat;
   sym_kSoftfloat; sym_kMs_abi_default; sym_kMs_abi_cdecl; sym_kSaveregisters;
   sym_kSysv_abi_default; sym_kSysv_abi_cdecl; sym_kVectorcall; sym_kVarargs; sym_kWinapi];
   ACTIONS 11651 [sym_kAlias]; ACTIONS 5567 [sym_kCase; sym_kClass; sym_kConst; sym_kConstructor;
   sym_kDestructor; sym_kEnd; sym_kFunction]; ACTIONS 1016 [sym_kInline];
   ACTIONS 5567 [sym_kProcedure; sym_kProperty; sym_kResourcestring; sym_kThreadvar; sym_kType;
   sym_kVar]].

(** State 1796. *)
Definition ts_parse_table_1796 : parse_row :=
  [STATE 2875 [sym__ppIf]; STATE 2590 [sym__procAttributeNoExt];
   STATE 2591 [sym__procAttributesPp]; STATE 14895 [sym_procAttribute];
   STATE 1901 [aux_sym__declProc_repeat1]; ACTIONS 12637 [anon_sym_LBRACK];
   ACTIONS 5408 [aux_sym_ppUsesBlock_token1]; ACTIONS 3 [sym__space];
   ACTIONS 5 [sym_ppDirective]; ACTIONS 3 [sym_comment]; ACTIONS 1016 [sym_kDefault;
   sym_kNodefault]; ACTIONS 11641 [sym_kDispId]; ACTIONS 5401 [sym_kGeneric; sym_kOperator;
   sym_kPublished]; ACTIONS 5417 [sym_kPublic]; ACTIONS 5401 [sym_kProtected; sym_kPrivate;
   sym_kStrict; sym_kRequired; sym_kOptional]; ACTIONS 1016 [sym_kStatic; sym_kVirtual;
   sym_kAbstract; sym_kDynamic; sym_kOverride; sym_kOverload; sym_kReintroduce; sym_kStdcall;
   sym_kCdecl; sym_kCppdecl; sym_kPascal; sym_kRegister; sym_kMwpascal];
   ACTIONS 11645 [sym_kMessage]; ACTIONS 11647 [sym_kDeprecated];
   ACTIONS 1016 [sym_kExperimental; sym_kPlatform; sym_kUnimplemented; sym_kCvar];
   ACTIONS 11649 [sym_kExport]; ACTIONS 1016 [sym_kFar; sym_kNear; sym_kSafecall; sym_kAssembler;
   sym_kNostackframe; sym_kInterrupt; sym_kNoreturn; sym_kIocheck; sym_kLocal; sym_kHardfloat;
   sym_kSoftfloat; sym_kMs_abi_default; sym_kMs_abi_cdecl; sym_kSaveregisters;
   sym_kSysv_abi_default; sym_kSysv_abi_cdecl; sym_kVectorcall; sym_kVarargs; sym_kWinapi];
   ACTIONS 11651 [sym_kAlias]; ACTIONS 5401 [sym_kCase; sym_kClass; sym_kConst; sym_kConstructor;
   sym_kDestructor; sym_kEnd; sym_kFunction]; ACTIONS 1016 [sym_kInline];
   ACTIONS 5401 [sym_kProcedure; sym_kProperty; sym_kResourcestring; sym_kThreadvar; sym_kType;
   sym_kVar]].

(** State 1797. *)
Definition ts_parse_table_1797 : parse_row :=
  [STATE 2875 [sym__ppIf]; STATE 2590 [sym__procAttributeNoExt];
   STATE 2591 [sym__procAttributesPp]; STATE 14895 [sym_procAttribute];
   STATE 1912 [aux_sym__declProc_repeat1]; ACTIONS 12640 [anon_sym_LBRACK];
   ACTIONS 5439 [aux_sym_ppUsesBlock_token1]; ACTIONS 3 [sym__space];
   ACTIONS 5 [sym_ppDirective]; ACTIONS 3 [sym_comment]; ACTIONS 1016 [sym_kDefault;
   sym_kNodefault]; ACTIONS 11641 [sym_kDispId]; ACTIONS 5432 [sym_kGeneric; sym_kOperator;
   sym_kPublished]; ACTIONS 5448 [sym_kPublic]; ACTIONS 5432 [sym_kProtected; sym_kPrivate;
   sym_kStrict; sym_kRequired; sym_kOptional]; ACTIONS 1016 [sym_kStatic; sym_kVirtual;
   sym_kAbstract; sym_kDynamic; sym_kOverride; sym_kOverload; sym_kReintroduce; sym_kStdcall;
   sym_kCdecl; sym_kCppdecl; sym_kPascal; sym_kRegister; sym_kMwpascal];
   ACTIONS 11645 [sym_kMessage]; ACTIONS 11647 [sym_kDeprecated];
   ACTIONS 1016 [sym_kExperimental; sym_kPlatform; sym_kUnimplemented; sym_kCvar];
   ACTIONS 11649 [sym_kExport]; ACTIONS 1016 [sym_kFar; sym_kNear; sym_kSafecall; sym_kAssembler;
   sym_kNostackframe; sym_kInterrupt; sym_kNoreturn; sym_kIocheck; sym_kLocal; sym_kHardfloat;
   sym_kSoftfloat; sym_kMs_abi_default; sym_kMs_abi_cdecl; sym_kSaveregisters;
   sym_kSysv_abi_default; sym_kSysv_abi_cdecl; sym_kVectorcall; sym_kVarargs; sym_kWinapi];
   ACTIONS 11651 [sym_kAlias]; ACTIONS 5432 [sym_kCase; sym_kClass; sym_kConst; sym_kConstructor;
   sym_kDestructor; sym_kEnd; sym_kFunction]; ACTIONS 1016 [sym_kInline];
   ACTIONS 5432 [sym_kProcedure; sym_kProperty; sym_kResourcestring; sym_kThreadvar; sym_kType;
   sym_kVar]].

(** State 1798. *)
Definition ts_parse_table_1798 : parse_row :=
  [STATE 2875 [sym__ppIf]; STATE 2590 [sym__procAttributeNoExt];
   STATE 2591 [sym__procAttributesPp]; STATE 14895 [sym_procAttribute];
   STATE 1901 [aux_sym__declProc_repeat1]; ACTIONS 12643 [anon_sym_LBRACK];
   ACTIONS 5473 [aux_sym_ppUsesBlock_token1]; ACTIONS 3 [sym__space];
   ACTIONS 5 [sym_ppDirective]; ACTIONS 3 [sym_comment]; ACTIONS 1016 [sym_kDefault;
   sym_kNodefault]; ACTIONS 11641 [sym_kDispId]; ACTIONS 5466 [sym_kGeneric; sym_kOperator;
   sym_kPublished]; ACTIONS 5482 [sym_kPublic]; ACTIONS 5466 [sym_kProtected; sym_kPrivate;
   sym_kStrict; sym_kRequired; sym_kOptional]; ACTIONS 1016 [sym_kStatic; sym_kVirtual;
   sym_kAbstract; sym_kDynamic; sym_kOverride; sym_kOverload; sym_kReintroduce; sym_kStdcall;
   sym_kCdecl; sym_kCppdecl; sym_kPascal; sym_kRegister; sym_kMwpascal];
   ACTIONS 11645 [sym_kMessage]; ACTIONS 11647 [sym_kDeprecated];
   ACTIONS 1016 [sym_kExperimental; sym_kPlatform; sym_kUnimplemented; sym_kCvar];
   ACTIONS 11649 [sym_kExport]; ACTIONS 1016 [sym_kFar; sym_kNear; sym_kSafecall; sym_kAssembler;
   sym_kNostackframe; sym_kInterrupt; sym_kNoreturn; sym_kIocheck; sym_kLocal; sym_kHardfloat;
   sym_kSoftfloat; sym_kMs_abi_default; sym_kMs_abi_cdecl; sym_kSaveregisters;
   sym_kSysv_abi_default; sym_kSysv_abi_cdecl; sym_kVectorcall; sym_kVarargs; sym_kWinapi];
   ACTIONS 11651 [sym_kAlias]; ACTIONS 5466 [sym_kCase; sym_kClass; sym_kConst; sym_kConstructor;
   sym_kDestructor; sym_kEnd; sym_kFunction]; ACTIONS 1016 [sym_kInline];
   ACTIONS 5466 [sym_kProcedure; sym_kProperty; sym_kResourcestring; sym_kThreadvar; sym_kType;
   sym_kVar]].

(** State 1799. *)
Definition ts_parse_table_1799 : parse_row :=
  [STATE 2875 [sym__ppIf]; STATE 2590 [sym__procAttributeNoExt];
   STATE 2591 [sym__procAttributesPp]; STATE 14895 [sym_procAttribute];
   STATE 1812 [aux_sym__declProc_repeat1]; ACTIONS 12646 [anon_sym_LBRACK];
   ACTIONS 5664 [aux_sym_ppUsesBlock_token1]; ACTIONS 3 [sym__space];
   ACTIONS 5 [sym_ppDirective]; ACTIONS 3 [sym_comment]; ACTIONS 1016 [sym_kDefault;
   sym_kNodefault]; ACTIONS 11641 [sym_kDispId]; ACTIONS 5657 [sym_kGeneric; sym_kOperator;
   sym_kPublished]; ACTIONS 5673 [sym_kPublic]; ACTIONS 5657 [sym_kProtected; sym_kPrivate;
   sym_kStrict; sym_kRequired; sym_kOptional]; ACTIONS 1016 [sym_kStatic; sym_kVirtual;
   sym_kAbstract; sym_kDynamic; sym_kOverride; sym_kOverload; sym_kReintroduce; sym_kStdcall;
   sym_kCdecl; sym_kCppdecl; sym_kPascal; sym_kRegister; sym_kMwpascal];
   ACTIONS 11645 [sym_kMessage]; ACTIONS 11647 [sym_kDeprecated];
   ACTIONS 1016 [sym_kExperimental; sym_kPlatform; sym_kUnimplemented; sym_kCvar];
   ACTIONS 11649 [sym_kExport]; ACTIONS 1016 [sym_kFar; sym_kNear; sym_kSafecall; sym_kAssembler;
   sym_kNostackframe; sym_kInterrupt; sym_kNoreturn; sym_kIocheck; sym_kLocal; sym_kHardfloat;
   sym_kSoftfloat; sym_kMs_abi_default; sym_kMs_abi_cdecl; sym_kSaveregisters;
   sym_kSysv_abi_default; sym_kSysv_abi_cdecl; sym_kVectorcall; sym_kVarargs; sym_kWinapi];
   ACTIONS 11651 [sym_kAlias]; ACTIONS 5657 [sym_kCase; sym_kClass; sym_kConst; sym_kConstructor;
   sym_kDestructor; sym_kEnd; sym_kFunction]; ACTIONS 1016 [sym_kInline];
   ACTIONS 5657 [sym_kProcedure; sym_kProperty; sym_kResourcestring; sym_kThreadvar; sym_kType;
   sym_kVar]].

(** State 1800. *)
Definition ts_parse_table_1800 : parse_row :=
  [STATE 2875 [sym__ppIf]; STATE 2590 [sym__procAttributeNoExt];
   STATE 2591 [sym__procAttributesPp]; STATE 14895 [sym_procAttribute];
   STATE 1901 [aux_sym__declProc_repeat1]; ACTIONS 12649 [anon_sym_LBRACK];
   ACTIONS 5698 [aux_sym_ppUsesBlock_token1]; ACTIONS 3 [sym__space];
   ACTIONS 5 [sym_ppDirective]; ACTIONS 3 [sym_comment]; ACTIONS 1016 [sym_kDefault;
   sym_kNodefault]; ACTIONS 11641 [sym_kDispId]; ACTIONS 5691 [sym_kGeneric; sym_kOperator;
   sym_kPublished]; ACTIONS 5707 [sym_kPublic]; ACTIONS 5691 [sym_kProtected; sym_kPrivate;
   sym_kStrict; sym_kRequired; sym_kOptional]; ACTIONS 1016 [sym_kStatic; sym_kVirtual;
   sym_kAbstract; sym_kDynamic; sym_kOverride; sym_kOverload; sym_kReintroduce; sym_kStdcall;
   sym_kCdecl; sym_kCppdecl; sym_kPascal; sym_kRegister; sym_kMwpascal];
   ACTIONS 11645 [sym_kMessage]; ACTIONS 11647 [sym_kDeprecated];
   ACTIONS 1016 [sym_kExperimental; sym_kPlatform; sym_kUnimplemented; sym_kCvar];
   ACTIONS 11649 [sym_kExport]; ACTIONS 1016 [sym_kFar; sym_kNear; sym_kSafecall; sym_kAssembler;
   sym_kNostackframe; sym_kInterrupt; sym_kNoreturn; sym_kIocheck; sym_kLocal; sym_kHardfloat;
   sym_kSoftfloat; sym_kMs_abi_default; sym_kMs_abi_cdecl; sym_kSaveregisters;
   sym_kSysv_abi_default; sym_kSysv_abi_cdecl; sym_kVectorcall; sym_kVarargs; sym_kWinapi];
   ACTIONS 11651 [sym_kAlias]; ACTIONS 5691 [sym_kCase; sym_kClass; sym_kConst; sym_kConstructor;
   sym_kDestructor; sym_kEnd; sym_kFunction]; ACTIONS 1016 [sym_kInline];
   ACTIONS 5691 [sym_kProcedure; sym_kProperty; sym_kResourcestring; sym_kThreadvar; sym_kType;
   sym_kVar]].

(** State 1801. *)
Definition ts_parse_table_1801 : parse_row :=
  [STATE 2875 [sym__ppIf]; STATE 2590 [sym__procAttributeNoExt];
   STATE 2591 [sym__procAttributesPp]; STATE 14895 [sym_procAttribute];
   STATE 1901 [aux_sym__declProc_repeat1]; ACTIONS 12652 [anon_sym_LBRACK];
   ACTIONS 5757 [aux_sym_ppUsesBlock_token1]; ACTIONS 3 [sym__space];
   ACTIONS 5 [sym_ppDirective]; ACTIONS 3 [sym_comment]; ACTIONS 1016 [sym_kDefault;
   sym_kNodefault]; ACTIONS 11641 [sym_kDispId]; ACTIONS 5750 [sym_kGeneric; sym_kOperator;
   sym_kPublished]; ACTIONS 5766 [sym_kPublic]; ACTIONS 5750 [sym_kProtected; sym_kPrivate;
   sym_kStrict; sym_kRequired; sym_kOptional]; ACTIONS 1016 [sym_kStatic; sym_kVirtual;
   sym_kAbstract; sym_kDynamic; sym_kOverride; sym_kOverload; sym_kReintroduce; sym_kStdcall;
   sym_kCdecl; sym_kCppdecl; sym_kPascal; sym_kRegister; sym_kMwpascal];
   ACTIONS 11645 [sym_kMessage]; ACTIONS 11647 [sym_kDeprecated];
   ACTIONS 1016 [sym_kExperimental; sym_kPlatform; sym_kUnimplemented; sym_kCvar];
   ACTIONS 11649 [sym_kExport]; ACTIONS 1016 [sym_kFar; sym_kNear; sym_kSafecall; sym_kAssembler;
   sym_kNostackframe; sym_kInterrupt; sym_kNoreturn; sym_kIocheck; sym_kLocal; sym_kHardfloat;
   sym_kSoftfloat; sym_kMs_abi_default; sym_kMs_abi_cdecl; sym_kSaveregisters;
   sym_kSysv_abi_default; sym_kSysv_abi_cdecl; sym_kVectorcall; sym_kVarargs; sym_kWinapi];
   ACTIONS 11651 [sym_kAlias]; ACTIONS 5750 [sym_kCase; sym_kClass; sym_kConst; sym_kConstructor;
   sym_kDestructor; sym_kEnd; sym_kFunction]; ACTIONS 1016 [sym_kInline];
   ACTIONS 5750 [sym_kProcedure; sym_kProperty; sym_kResourcestring; sym_kThreadvar; sym_kType;
   sym_kVar]].

(** State 1802. *)
Definition ts_parse_table_1802 : parse_row :=
  [STATE 2875 [sym__ppIf]; STATE 2590 [sym__procAttributeNoExt];
   STATE 2591 [sym__procAttributesPp]; STATE 14895 [sym_procAttribute];
   STATE 1814 [aux_sym__declProc_repeat1]; ACTIONS 12655 [anon_sym_LBRACK];
   ACTIONS 5900 [aux_sym_ppUsesBlock_token1]; ACTIONS 3 [sym__space];
   ACTIONS 5 [sym_ppDirective]; ACTIONS 3 [sym_comment]; ACTIONS 1016 [sym_kDefault;
   sym_kNodefault]; ACTIONS 11641 [sym_kDispId]; ACTIONS 5893 [sym_kGeneric; sym_kOperator;
   sym_kPublished]; ACTIONS 5909 [sym_kPublic]; ACTIONS 5893 [sym_kProtected; sym_kPrivate;
   sym_kStrict; sym_kRequired; sym_kOptional]; ACTIONS 1016 [sym_kStatic; sym_kVirtual;
   sym_kAbstract; sym_kDynamic; sym_kOverride; sym_kOverload; sym_kReintroduce; sym_kStdcall;
   sym_kCdecl; sym_kCppdecl; sym_kPascal; sym_kRegister; sym_kMwpascal];
   ACTIONS 11645 [sym_kMessage]; ACTIONS 11647 [sym_kDeprecated];
   ACTIONS 1016 [sym_kExperimental; sym_kPlatform; sym_kUnimplemented; sym_kCvar];
   ACTIONS 11649 [sym_kExport]; ACTIONS 1016 [sym_kFar; sym_kNear; sym_kSafecall; sym_kAssembler;
   sym_kNostackframe; sym_kInterrupt; sym_kNoreturn; sym_kIocheck; sym_kLocal; sym_kHardfloat;
   sym_kSoftfloat; sym_kMs_abi_default; sym_kMs_abi_cdecl; sym_kSaveregisters;
   sym_kSysv_abi_default; sym_kSysv_abi_cdecl; sym_kVectorcall; sym_kVarargs; sym_kWinapi];
   ACTIONS 11651 [sym_kAlias]; ACTIONS 5893 [sym_kCase; sym_kClass; sym_kConst; sym_kConstructor;
   sym_kDestructor; sym_kEnd; sym_kFunction]; ACTIONS 1016 [sym_kInline];
   ACTIONS 5893 [sym_kProcedure; sym_kProperty; sym_kResourcestring; sym_kThreadvar; sym_kType;
   sym_kVar]].

(** State 1803. *)
Definition ts_parse_table_1803 : parse_row :=
  [STATE 2875 [sym__ppIf]; STATE 2590 [sym__procAttributeNoExt];
   STATE 2591 [sym__procAttributesPp]; STATE 14895 [sym_procAttribute];
   STATE 1815 [aux_sym__declProc_repeat1]; ACTIONS 12658 [anon_sym_LBRACK];
   ACTIONS 5934 [aux_sym_ppUsesBlock_token1]; ACTIONS 3 [sym__space];
   ACTIONS 5 [sym_ppDirective]; ACTIONS 3 [sym_comment]; ACTIONS 1016 [sym_kDefault;
   sym_kNodefault]; ACTIONS 11641 [sym_kDispId]; ACTIONS 5927 [sym_kGeneric; sym_kOperator;
   sym_kPublished]; ACTIONS 5943 [sym_kPublic]; ACTIONS 5927 [sym_kProtected; sym_kPrivate;
   sym_kStrict; sym_kRequired; sym_kOptional]; ACTIONS 1016 [sym_kStatic; sym_kVirtual;
   sym_kAbstract; sym_kDynamic; sym_kOverride; sym_kOverload; sym_kReintroduce; sym_kStdcall;
   sym_kCdecl; sym_kCppdecl; sym_kPascal; sym_kRegister; sym_kMwpascal];
   ACTIONS 11645 [sym_kMessage]; ACTIONS 11647 [sym_kDeprecated];
   ACTIONS 1016 [sym_kExperimental; sym_kPlatform; sym_kUnimplemented; sym_kCvar];
   ACTIONS 11649 [sym_kExport]; ACTIONS 1016 [sym_kFar; sym_kNear; sym_kSafecall; sym_kAssembler;
   sym_kNostackframe; sym_kInterrupt; sym_kNoreturn; sym_kIocheck; sym_kLocal; sym_kHardfloat;
   sym_kSoftfloat; sym_kMs_abi_default; sym_kMs_abi_cdecl; sym_kSaveregisters;
   sym_kSysv_abi_default; sym_kSysv_abi_cdecl; sym_kVectorcall; sym_kVarargs; sym_kWinapi];
   ACTIONS 11651 [sym_kAlias]; ACTIONS 5927 [sym_kCase; sym_kClass; sym_kConst; sym_kConstructor;
   sym_kDestructor; sym_kEnd; sym_kFunction]; ACTIONS 1016 [sym_kInline];
   ACTIONS 5927 [sym_kProcedure; sym_kProperty; sym_kResourcestring; sym_kThreadvar; sym_kType;
   sym_kVar]].

(** State 1804. *)
Definition ts_parse_table_1804 : parse_row :=
  [STATE 2875 [sym__ppIf]; STATE 2590 [sym__procAttributeNoExt];
   STATE 2591 [sym__procAttributesPp]; STATE 14895 [sym_procAttribute];
   STATE 1901 [aux_sym__declProc_repeat1]; ACTIONS 12661 [anon_sym_LBRACK];
   ACTIONS 6003 [aux_sym_ppUsesBlock_token1]; ACTIONS 3 [sym__space];
   ACTIONS 5 [sym_ppDirective]; ACTIONS 3 [sym_comment]; ACTIONS 1016 [sym_kDefault;
   sym_kNodefault]; ACTIONS 11641 [sym_kDispId]; ACTIONS 5996 [sym_kGeneric; sym_kOperator;
   sym_kPublished]; ACTIONS 6012 [sym_kPublic]; ACTIONS 5996 [sym_kProtected; sym_kPrivate;
   sym_kStrict; sym_kRequired; sym_kOptional]; ACTIONS 1016 [sym_kStatic; sym_kVirtual;
   sym_kAbstract; sym_kDynamic; sym_kOverride; sym_kOverload; sym_kReintroduce; sym_kStdcall;
   sym_kCdecl; sym_kCppdecl; sym_kPascal; sym_kRegister; sym_kMwpascal];
   ACTIONS 11645 [sym_kMessage]; ACTIONS 11647 [sym_kDeprecated];
   ACTIONS 1016 [sym_kExperimental; sym_kPlatform; sym_kUnimplemented; sym_kCvar];
   ACTIONS 11649 [sym_kExport]; ACTIONS 1016 [sym_kFar; sym_kNear; sym_kSafecall; sym_kAssembler;
   sym_kNostackframe; sym_kInterrupt; sym_kNoreturn; sym_kIocheck; sym_kLocal; sym_kHardfloat;
   sym_kSoftfloat; sym_kMs_abi_default; sym_kMs_abi_cdecl; sym_kSaveregisters;
   sym_kSysv_abi_default; sym_kSysv_abi_cdecl; sym_kVectorcall; sym_kVarargs; sym_kWinapi];
   ACTIONS 11651 [sym_kAlias]; ACTIONS 5996 [sym_kCase; sym_kClass; sym_kConst; sym_kConstructor;
   sym_kDestructor; sym_kEnd; sym_kFunction]; ACTIONS 1016 [sym_kInline];
   ACTIONS 5996 [sym_kProcedure; sym_kProperty; sym_kResourcestring; sym_kThreadvar; sym_kType;
   sym_kVar]].

(** State 1805. *)
Definition ts_parse_table_1805 : parse_row :=
  [STATE 2875 [sym__ppIf]; STATE 2590 [sym__procAttributeNoExt];
   STATE 2591 [sym__procAttributesPp]; STATE 14895 [sym_procAttribute];
   STATE 1901 [aux_sym__declProc_repeat1]; ACTIONS 12664 [anon_sym_LBRACK];
   ACTIONS 6110 [aux_sym_ppUsesBlock_token1]; ACTIONS 3 [sym__space];
   ACTIONS 5 [sym_ppDirective]; ACTIONS 3 [sym_comment]; ACTIONS 1016 [sym_kDefault;
   sym_kNodefault]; ACTIONS 11641 [sym_kDispId]; ACTIONS 6103 [sym_kGeneric; sym_kOperator;
   sym_kPublished]; ACTIONS 6119 [sym_kPublic]; ACTIONS 6103 [sym_kProtected; sym_kPrivate;
   sym_kStrict; sym_kRequired; sym_kOptional]; ACTIONS 1016 [sym_kStatic; sym_kVirtual;
   sym_kAbstract; sym_kDynamic; sym_kOverride; sym_kOverload; sym_kReintroduce; sym_kStdcall;
   sym_kCdecl; sym_kCppdecl; sym_kPascal; sym_kRegister; sym_kMwpascal];
   ACTIONS 11645 [sym_kMessage]; ACTIONS 11647 [sym_kDeprecated];
   ACTIONS 1016 [sym_kExperimental; sym_kPlatform; sym_kUnimplemented; sym_kCvar];
   ACTIONS 11649 [sym_kExport]; ACTIONS 1016 [sym_kFar; sym_kNear; sym_kSafecall; sym_kAssembler;
   sym_kNostackframe; sym_kInterrupt; sym_kNoreturn; sym_kIocheck; sym_kLocal; sym_kHardfloat;
   sym_kSoftfloat; sym_kMs_abi_default; sym_kMs_abi_cdecl; sym_kSaveregisters;
   sym_kSysv_abi_default; sym_kSysv_abi_cdecl; sym_kVectorcall; sym_kVarargs; sym_kWinapi];
   ACTIONS 11651 [sym_kAlias]; ACTIONS 6103 [sym_kCase; sym_kClass; sym_kConst; sym_kConstructor;
   sym_kDestructor; sym_kEnd; sym_kFunction]; ACTIONS 1016 [sym_kInline];
   ACTIONS 6103 [sym_kProcedure; sym_kProperty; sym_kResourcestring; sym_kThreadvar; sym_kType;
   sym_kVar]].

(** State 1806. *)
Definition ts_parse_table_1806 : parse_row :=
  [STATE 2875 [sym__ppIf]; STATE 2590 [sym__procAttributeNoExt];
   STATE 2591 [sym__procAttributesPp]; STATE 14895 [sym_procAttribute];
   STATE 1817 [aux_sym__declProc_repeat1]; ACTIONS 12667 [anon_sym_LBRACK];
   ACTIONS 6172 [aux_sym_ppUsesBlock_token1]; ACTIONS 3 [sym__space];
   ACTIONS 5 [sym_ppDirective]; ACTIONS 3 [sym_comment]; ACTIONS 1016 [sym_kDefault;
   sym_kNodefault]; ACTIONS 11641 [sym_kDispId]; ACTIONS 6165 [sym_kGeneric; sym_kOperator;
   sym_kPublished]; ACTIONS 6181 [sym_kPublic]; ACTIONS 6165 [sym_kProtected; sym_kPrivate;
   sym_kStrict; sym_kRequired; sym_kOptional]; ACTIONS 1016 [sym_kStatic; sym_kVirtual;
   sym_kAbstract; sym_kDynamic; sym_kOverride; sym_kOverload; sym_kReintroduce; sym_kStdcall;
   sym_kCdecl; sym_kCppdecl; sym_kPascal; sym_kRegister; sym_kMwpascal];
   ACTIONS 11645 [sym_kMessage]; ACTIONS 11647 [sym_kDeprecated];
   ACTIONS 1016 [sym_kExperimental; sym_kPlatform; sym_kUnimplemented; sym_kCvar];
   ACTIONS 11649 [sym_kExport]; ACTIONS 1016 [sym_kFar; sym_kNear; sym_kSafecall; sym_kAssembler;
   sym_kNostackframe; sym_kInterrupt; sym_kNoreturn; sym_kIocheck; sym_kLocal; sym_kHardfloat;
   sym_kSoftfloat; sym_kMs_abi_default; sym_kMs_abi_cdecl; sym_kSaveregisters;
   sym_kSysv_abi_default; sym_kSysv_abi_cdecl; sym_kVectorcall; sym_kVarargs; sym_kWinapi];
   ACTIONS 11651 [sym_kAlias]; ACTIONS 6165 [sym_kCase; sym_kClass; sym_kConst; sym_kConstructor;
   sym_kDestructor; sym_kEnd; sym_kFunction]; ACTIONS 1016 [sym_kInline];
   ACTIONS 6165 [sym_kProcedure; sym_kProperty; sym_kResourcestring; sym_kThreadvar; sym_kType;
   sym_kVar]].

(** State 1807. *)
Definition ts_parse_table_1807 : parse_row :=
  [STATE 2875 [sym__ppIf]; STATE 2590 [sym__procAttributeNoExt];
   STATE 2591 [sym__procAttributesPp]; STATE 14895 [sym_procAttribute];
   STATE 1901 [aux_sym__declProc_repeat1]; ACTIONS 12670 [anon_sym_LBRACK];
   ACTIONS 6216 [aux_sym_ppUsesBlock_token1]; ACTIONS 3 [sym__space];
   ACTIONS 5 [sym_ppDirective]; ACTIONS 3 [sym_comment]; ACTIONS 1016 [sym_kDefault;
   sym_kNodefault]; ACTIONS 11641 [sym_kDispId]; ACTIONS 6209 [sym_kGeneric; sym_kOperator;
   sym_kPublished]; ACTIONS 6225 [sym_kPublic]; ACTIONS 6209 [sym_kProtected; sym_kPrivate;
   sym_kStrict; sym_kRequired; sym_kOptional]; ACTIONS 1016 [sym_kStatic; sym_kVirtual;
   sym_kAbstract; sym_kDynamic; sym_kOverride; sym_kOverload; sym_kReintroduce; sym_kStdcall;
   sym_kCdecl; sym_kCppdecl; sym_kPascal; sym_kRegister; sym_kMwpascal];
   ACTIONS 11645 [sym_kMessage]; ACTIONS 11647 [sym_kDeprecated];
   ACTIONS 1016 [sym_kExperimental; sym_kPlatform; sym_kUnimplemented; sym_kCvar];
   ACTIONS 11649 [sym_kExport]; ACTIONS 1016 [sym_kFar; sym_kNear; sym_kSafecall; sym_kAssembler;
   sym_kNostackframe; sym_kInterrupt; sym_kNoreturn; sym_kIocheck; sym_kLocal; sym_kHardfloat;
   sym_kSoftfloat; sym_kMs_abi_default; sym_kMs_abi_cdecl; sym_kSaveregisters;
   sym_kSysv_abi_default; sym_kSysv_abi_cdecl; sym_kVectorcall; sym_kVarargs; sym_kWinapi];
   ACTIONS 11651 [sym_kAlias]; ACTIONS 6209 [sym_kCase; sym_kClass; sym_kConst; sym_kConstructor;
   sym_kDestructor; sym_kEnd; sym_kFunction]; ACTIONS 1016 [sym_kInline];
   ACTIONS 6209 [sym_kProcedure; sym_kProperty; sym_kResourcestring; sym_kThreadvar; sym_kType;
   sym_kVar]].

(** State 1808. *)
Definition ts_parse_table_1808 : parse_row :=
  [STATE 2875 [sym__ppIf]; STATE 2590 [sym__procAttributeNoExt];
   STATE 2591 [sym__procAttributesPp]; STATE 14895 [sym_procAttribute];
   STATE 1819 [aux_sym__declProc_repeat1]; ACTIONS 12673 [anon_sym_LBRACK];
   ACTIONS 6328 [aux_sym_ppUsesBlock_token1]; ACTIONS 3 [sym__space];
   ACTIONS 5 [sym_ppDirective]; ACTIONS 3 [sym_comment]; ACTIONS 1016 [sym_kDefault;
   sym_kNodefault]; ACTIONS 11641 [sym_kDispId]; ACTIONS 6321 [sym_kGeneric; sym_kOperator;
   sym_kPublished]; ACTIONS 6337 [sym_kPublic]; ACTIONS 6321 [sym_kProtected; sym_kPrivate;
   sym_kStrict; sym_kRequired; sym_kOptional]; ACTIONS 1016 [sym_kStatic; sym_kVirtual;
   sym_kAbstract; sym_kDynamic; sym_kOverride; sym_kOverload; sym_kReintroduce; sym_kStdcall;
   sym_kCdecl; sym_kCppdecl; sym_kPascal; sym_kRegister; sym_kMwpascal];
   ACTIONS 11645 [sym_kMessage]; ACTIONS 11647 [sym_kDeprecated];
   ACTIONS 1016 [sym_kExperimental; sym_kPlatform; sym_kUnimplemented; sym_kCvar];
   ACTIONS 11649 [sym_kExport]; ACTIONS 1016 [sym_kFar; sym_kNear; sym_kSafecall; sym_kAssembler;
   sym_kNostackframe; sym_kInterrupt; sym_kNoreturn; sym_kIocheck; sym_kLocal; sym_kHardfloat;
   sym_kSoftfloat; sym_kMs_abi_default; sym_kMs_abi_cdecl; sym_kSaveregisters;
   sym_kSysv_abi_default; sym_kSysv_abi_cdecl; sym_kVectorcall; sym_kVarargs; sym_kWinapi];
   ACTIONS 11651 [sym_kAlias]; ACTIONS 6321 [sym_kCase; sym_kClass; sym_kConst; sym_kConstructor;
   sym_kDestructor; sym_kEnd; sym_kFunction]; ACTIONS 1016 [sym_kInline];
   ACTIONS 6321 [sym_kProcedure; sym_kProperty; sym_kResourcestring; sym_kThreadvar; sym_kType;
   sym_kVar]].

(** State 1809. *)
Definition ts_parse_table_1809 : parse_row :=
  [STATE 2875 [sym__ppIf]; STATE 2590 [sym__procAttributeNoExt];
   STATE 2591 [sym__procAttributesPp]; STATE 14895 [sym_procAttribute];
   STATE 1820 [aux_sym__declProc_repeat1]; ACTIONS 12676 [anon_sym_LBRACK];
   ACTIONS 6362 [aux_sym_ppUsesBlock_token1]; ACTIONS 3 [sym__space];
   ACTIONS 5 [sym_ppDirective]; ACTIONS 3 [sym_comment]; ACTIONS 1016 [sym_kDefault;
   sym_kNodefault]; ACTIONS 11641 [sym_kDispId]; ACTIONS 6355 [sym_kGeneric; sym_kOperator;
   sym_kPublished]; ACTIONS 6371 [sym_kPublic]; ACTIONS 6355 [sym_kProtected; sym_kPrivate;
   sym_kStrict; sym_kRequired; sym_kOptional]; ACTIONS 1016 [sym_kStatic; sym_kVirtual;
   sym_kAbstract; sym_kDynamic; sym_kOverride; sym_kOverload; sym_kReintroduce; sym_kStdcall;
   sym_kCdecl; sym_kCppdecl; sym_kPascal; sym_kRegister; sym_kMwpascal];
   ACTIONS 11645 [sym_kMessage]; ACTIONS 11647 [sym_kDeprecated];
   ACTIONS 1016 [sym_kExperimental; sym_kPlatform; sym_kUnimplemented; sym_kCvar];
   ACTIONS 11649 [sym_kExport]; ACTIONS 1016 [sym_kFar; sym_kNear; sym_kSafecall; sym_kAssembler;
   sym_kNostackframe; sym_kInterrupt; sym_kNoreturn; sym_kIocheck; sym_kLocal; sym_kHardfloat;
   sym_kSoftfloat; sym_kMs_abi_default; sym_kMs_abi_cdecl; sym_kSaveregisters;
   sym_kSysv_abi_default; sym_kSysv_abi_cdecl; sym_kVectorcall; sym_kVarargs; sym_kWinapi];
   ACTIONS 11651 [sym_kAlias]; ACTIONS 6355 [sym_kCase; sym_kClass; sym_kConst; sym_kConstructor;
   sym_kDestructor; sym_kEnd; sym_kFunction]; ACTIONS 1016 [sym_kInline];
   ACTIONS 6355 [sym_kProcedure; sym_kProperty; sym_kResourcestring; sym_kThreadvar; sym_kType;
   sym_kVar]].

(** State 1810. *)
Definition ts_parse_table_1810 : parse_row :=
  [STATE 2875 [sym__ppIf]; STATE 2590 [sym__procAttributeNoExt];
   STATE 2591 [sym__procAttributesPp]; STATE 14895 [sym_procAttribute];
   STATE 1901 [aux_sym__declProc_repeat1]; ACTIONS 12679 [anon_sym_LBRACK];
   ACTIONS 6396 [aux_sym_ppUsesBlock_token1]; ACTIONS 3 [sym__space];
   ACTIONS 5 [sym_ppDirective]; ACTIONS 3 [sym_comment]; ACTIONS 1016 [sym_kDefault;
   sym_kNodefault]; ACTIONS 11641 [sym_kDispId]; ACTIONS 6389 [sym_kGeneric; sym_kOperator;
   sym_kPublished]; ACTIONS 6405 [sym_kPublic]; ACTIONS 6389 [sym_kProtected; sym_kPrivate;
   sym_kStrict; sym_kRequired; sym_kOptional]; ACTIONS 1016 [sym_kStatic; sym_kVirtual;
   sym_kAbstract; sym_kDynamic; sym_kOverride; sym_kOverload; sym_kReintroduce; sym_kStdcall;
   sym_kCdecl; sym_kCppdecl; sym_kPascal; sym_kRegister; sym_kMwpascal];
   ACTIONS 11645 [sym_kMessage]; ACTIONS 11647 [sym_kDeprecated];
   ACTIONS 1016 [sym_kExperimental; sym_kPlatform; sym_kUnimplemented; sym_kCvar];
   ACTIONS 11649 [sym_kExport]; ACTIONS 1016 [sym_kFar; sym_kNear; sym_kSafecall; sym_kAssembler;
   sym_kNostackframe; sym_kInterrupt; sym_kNoreturn; sym_kIocheck; sym_kLocal; sym_kHardfloat;
   sym_kSoftfloat; sym_kMs_abi_default; sym_kMs_abi_cdecl; sym_kSaveregisters;
   sym_kSysv_abi_default; sym_kSysv_abi_cdecl; sym_kVectorcall; sym_kVarargs; sym_kWinapi];
   ACTIONS 11651 [sym_kAlias]; ACTIONS 6389 [sym_kCase; sym_kClass; sym_kConst; sym_kConstructor;
   sym_kDestructor; sym_kEnd; sym_kFunction]; ACTIONS 1016 [sym_kInline];
   ACTIONS 6389 [sym_kProcedure; sym_kProperty; sym_kResourcestring; sym_kThreadvar; sym_kType;
   sym_kVar]].

(** State 1811. *)
Definition ts_parse_table_1811 : parse_row :=
  [STATE 2875 [sym__ppIf]; STATE 2590 [sym__procAttributeNoExt];
   STATE 2591 [sym__procAttributesPp]; STATE 14895 [sym_procAttribute];
   STATE 1699 [aux_sym__declProc_repeat1]; ACTIONS 12682 [anon_sym_LBRACK];
   ACTIONS 2108 [aux_sym_ppUsesBlock_token1]; ACTIONS 3 [sym__space];
   ACTIONS 5 [sym_ppDirective]; ACTIONS 3 [sym_comment]; ACTIONS 1016 [sym_kDefault;
   sym_kNodefault]; ACTIONS 11641 [sym_kDispId]; ACTIONS 2101 [sym_kGeneric; sym_kOperator;
   sym_kPublished]; ACTIONS 2117 [sym_kPublic]; ACTIONS 2101 [sym_kProtected; sym_kPrivate;
   sym_kStrict; sym_kRequired; sym_kOptional]; ACTIONS 1016 [sym_kStatic; sym_kVirtual;
   sym_kAbstract; sym_kDynamic; sym_kOverride; sym_kOverload; sym_kReintroduce; sym_kStdcall;
   sym_kCdecl; sym_kCppdecl; sym_kPascal; sym_kRegister; sym_kMwpascal];
   ACTIONS 11645 [sym_kMessage]; ACTIONS 11647 [sym_kDeprecated];
   ACTIONS 1016 [sym_kExperimental; sym_kPlatform; sym_kUnimplemented; sym_kCvar];
   ACTIONS 11649 [sym_kExport]; ACTIONS 1016 [sym_kFar; sym_kNear; sym_kSafecall; sym_kAssembler;
   sym_kNostackframe; sym_kInterrupt; sym_kNoreturn; sym_kIocheck; sym_kLocal; sym_kHardfloat;
   sym_kSoftfloat; sym_kMs_abi_default; sym_kMs_abi_cdecl; sym_kSaveregisters;
   sym_kSysv_abi_default; sym_kSysv_abi_cdecl; sym_kVectorcall; sym_kVarargs; sym_kWinapi];
   ACTIONS 11651 [sym_kAlias]; ACTIONS 2101 [sym_kCase; sym_kClass; sym_kConst; sym_kConstructor;
   sym_kDestructor; sym_kEnd; sym_kFunction]; ACTIONS 1016 [sym_kInline];
   ACTIONS 2101 [sym_kProcedure; sym_kProperty; sym_kResourcestring; sym_kThreadvar; sym_kType;
   sym_kVar]].

(** State 1812. *)
Definition ts_parse_table_1812 : parse_row :=
  [STATE 2875 [sym__ppIf]; STATE 2590 [sym__procAttributeNoExt];
   STATE 2591 [sym__procAttributesPp]; STATE 14895 [sym_procAttribute];
   STATE 1901 [aux_sym__declProc_repeat1]; ACTIONS 12685 [anon_sym_LBRACK];
   ACTIONS 3794 [aux_sym_ppUsesBlock_token1]; ACTIONS 3 [sym__space];
   ACTIONS 5 [sym_ppDirective]; ACTIONS 3 [sym_comment]; ACTIONS 1016 [sym_kDefault;
   sym_kNodefault]; ACTIONS 11641 [sym_kDispId]; ACTIONS 3787 [sym_kGeneric; sym_kOperator;
   sym_kPublished]; ACTIONS 3803 [sym_kPublic]; ACTIONS 3787 [sym_kProtected; sym_kPrivate;
   sym_kStrict; sym_kRequired; sym_kOptional]; ACTIONS 1016 [sym_kStatic; sym_kVirtual;
   sym_kAbstract; sym_kDynamic; sym_kOverride; sym_kOverload; sym_kReintroduce; sym_kStdcall;
   sym_kCdecl; sym_kCppdecl; sym_kPascal; sym_kRegister; sym_kMwpascal];
   ACTIONS 11645 [sym_kMessage]; ACTIONS 11647 [sym_kDeprecated];
   ACTIONS 1016 [sym_kExperimental; sym_kPlatform; sym_kUnimplemented; sym_kCvar];
   ACTIONS 11649 [sym_kExport]; ACTIONS 1016 [sym_kFar; sym_kNear; sym_kSafecall; sym_kAssembler;
   sym_kNostackframe; sym_kInterrupt; sym_kNoreturn; sym_kIocheck; sym_kLocal; sym_kHardfloat;
   sym_kSoftfloat; sym_kMs_abi_default; sym_kMs_abi_cdecl; sym_kSaveregisters;
   sym_kSysv_abi_default; sym_kSysv_abi_cdecl; sym_kVectorcall; sym_kVarargs; sym_kWinapi];
   ACTIONS 11651 [sym_kAlias]; ACTIONS 3787 [sym_kCase; sym_kClass; sym_kConst; sym_kConstructor;
   sym_kDestructor; sym_kEnd; sym_kFunction]; ACTIONS 1016 [sym_kInline];
   ACTIONS 3787 [sym_kProcedure; sym_kProperty; sym_kResourcestring; sym_kThreadvar; sym_kType;
   sym_kVar]].

(** State 1813. *)
Definition ts_parse_table_1813 : parse_row :=
  [STATE 2875 [sym__ppIf]; STATE 2590 [sym__procAttributeNoExt];
   STATE 2591 [sym__procAttributesPp]; STATE 14895 [sym_procAttribute];
   STATE 1822 [aux_sym__declProc_repeat1]; ACTIONS 12688 [anon_sym_LBRACK];
   ACTIONS 7326 [aux_sym_ppUsesBlock_token1]; ACTIONS 3 [sym__space];
   ACTIONS 5 [sym_ppDirective]; ACTIONS 3 [sym_comment]; ACTIONS 1016 [sym_kDefault;
   sym_kNodefault]; ACTIONS 11641 [sym_kDispId]; ACTIONS 7319 [sym_kGeneric; sym_kOperator;
   sym_kPublished]; ACTIONS 7335 [sym_kPublic]; ACTIONS 7319 [sym_kProtected; sym_kPrivate;
   sym_kStrict; sym_kRequired; sym_kOptional]; ACTIONS 1016 [sym_kStatic; sym_kVirtual;
   sym_kAbstract; sym_kDynamic; sym_kOverride; sym_kOverload; sym_kReintroduce; sym_kStdcall;
   sym_kCdecl; sym_kCppdecl; sym_kPascal; sym_kRegister; sym_kMwpascal];
   ACTIONS 11645 [sym_kMessage]; ACTIONS 11647 [sym_kDeprecated];
   ACTIONS 1016 [sym_kExperimental; sym_kPlatform; sym_kUnimplemented; sym_kCvar];
   ACTIONS 11649 [sym_kExport]; ACTIONS 1016 [sym_kFar; sym_kNear; sym_kSafecall; sym_kAssembler;
   sym_kNostackframe; sym_kInterrupt; sym_kNoreturn; sym_kIocheck; sym_kLocal; sym_kHardfloat;
   sym_kSoftfloat; sym_kMs_abi_default; sym_kMs_abi_cdecl; sym_kSaveregisters;
   sym_kSysv_abi_default; sym_kSysv_abi_cdecl; sym_kVectorcall; sym_kVarargs; sym_kWinapi];
   ACTIONS 11651 [sym_kAlias]; ACTIONS 7319 [sym_kCase; sym_kClass; sym_kConst; sym_kConstructor;
   sym_kDestructor; sym_kEnd; sym_kFunction]; ACTIONS 1016 [sym_kInline];
   ACTIONS 7319 [sym_kProcedure; sym_kProperty; sym_kResourcestring; sym_kThreadvar; sym_kType;
   sym_kVar]].

(** State 1814. *)
Definition ts_parse_table_1814 : parse_row :=
  [STATE 2875 [sym__ppIf]; STATE 2590 [sym__procAttributeNoExt];
   STATE 2591 [sym__procAttributesPp]; STATE 14895 [sym_procAttribute];
   STATE 1901 [aux_sym__declProc_repeat1]; ACTIONS 12691 [anon_sym_LBRACK];
   ACTIONS 6076 [aux_sym_ppUsesBlock_token1]; ACTIONS 3 [sym__space];
   ACTIONS 5 [sym_ppDirective]; ACTIONS 3 [sym_comment]; ACTIONS 1016 [sym_kDefault;
   sym_kNodefault]; ACTIONS 11641 [sym_kDispId]; ACTIONS 6069 [sym_kGeneric; sym_kOperator;
   sym_kPublished]; ACTIONS 6085 [sym_kPublic]; ACTIONS 6069 [sym_kProtected; sym_kPrivate;
   sym_kStrict; sym_kRequired; sym_kOptional]; ACTIONS 1016 [sym_kStatic; sym_kVirtual;
   sym_kAbstract; sym_kDynamic; sym_kOverride; sym_kOverload; sym_kReintroduce; sym_kStdcall;
   sym_kCdecl; sym_kCppdecl; sym_kPascal; sym_kRegister; sym_kMwpascal];
   ACTIONS 11645 [sym_kMessage]; ACTIONS 11647 [sym_kDeprecated];
   ACTIONS 1016 [sym_kExperimental; sym_kPlatform; sym_kUnimplemented; sym_kCvar];
   ACTIONS 11649 [sym_kExport]; ACTIONS 1016 [sym_kFar; sym_kNear; sym_kSafecall; sym_kAssembler;
   sym_kNostackframe; sym_kInterrupt; sym_kNoreturn; sym_kIocheck; sym_kLocal; sym_kHardfloat;
   sym_kSoftfloat; sym_kMs_abi_default; sym_kMs_abi_cdecl; sym_kSaveregisters;
   sym_kSysv_abi_default; sym_kSysv_abi_cdecl; sym_kVectorcall; sym_kVarargs; sym_kWinapi];
   ACTIONS 11651 [sym_kAlias]; ACTIONS 6069 [sym_kCase; sym_kClass; sym_kConst; sym_kConstructor;
   sym_kDestructor; sym_kEnd; sym_kFunction]; ACTIONS 1016 [sym_kInline];
   ACTIONS 6069 [sym_kProcedure; sym_kProperty; sym_kResourcestring; sym_kThreadvar; sym_kType;
   sym_kVar]].

(** State 1815. *)
Definition ts_parse_table_1815 : parse_row :=
  [STATE 2875 [sym__ppIf]; STATE 2590 [sym__procAttributeNoExt];
   STATE 2591 [sym__procAttributesPp]; STATE 14895 [sym_procAttribute];
   STATE 1901 [aux_sym__declProc_repeat1]; ACTIONS 12694 [anon_sym_LBRACK];
   ACTIONS 6141 [aux_sym_ppUsesBlock_token1]; ACTIONS 3 [sym__space];
   ACTIONS 5 [sym_ppDirective]; ACTIONS 3 [sym_comment]; ACTIONS 1016 [sym_kDefault;
   sym_kNodefault]; ACTIONS 11641 [sym_kDispId]; ACTIONS 6134 [sym_kGeneric; sym_kOperator;
   sym_kPublished]; ACTIONS 6150 [sym_kPublic]; ACTIONS 6134 [sym_kProtected; sym_kPrivate;
   sym_kStrict; sym_kRequired; sym_kOptional]; ACTIONS 1016 [sym_kStatic; sym_kVirtual;
   sym_kAbstract; sym_kDynamic; sym_kOverride; sym_kOverload; sym_kReintroduce; sym_kStdcall;
   sym_kCdecl; sym_kCppdecl; sym_kPascal; sym_kRegister; sym_kMwpascal];
   ACTIONS 11645 [sym_kMessage]; ACTIONS 11647 [sym_kDeprecated];
   ACTIONS 1016 [sym_kExperimental; sym_kPlatform; sym_kUnimplemented; sym_kCvar];
   ACTIONS 11649 [sym_kExport]; ACTIONS 1016 [sym_kFar; sym_kNear; sym_kSafecall; sym_kAssembler;
   sym_kNostackframe; sym_kInterrupt; sym_kNoreturn; sym_kIocheck; sym_kLocal; sym_kHardfloat;
   sym_kSoftfloat; sym_kMs_abi_default; sym_kMs_abi_cdecl; sym_kSaveregisters;
   sym_kSysv_abi_default; sym_kSysv_abi_cdecl; sym_kVectorcall; sym_kVarargs; sym_kWinapi];
   ACTIONS 11651 [sym_kAlias]; ACTIONS 6134 [sym_kCase; sym_kClass; sym_kConst; sym_kConstructor;
   sym_kDestructor; sym_kEnd; sym_kFunction]; ACTIONS 1016 [sym_kInline];
   ACTIONS 6134 [sym_kProcedure; sym_kProperty; sym_kResourcestring; sym_kThreadvar; sym_kType;
   sym_kVar]].

(** State 1816. *)
Definition ts_parse_table_1816 : parse_row :=
  [STATE 2875 [sym__ppIf]; STATE 2590 [sym__procAttributeNoExt];
   STATE 2591 [sym__procAttributesPp]; STATE 14895 [sym_procAttribute];
   STATE 1823 [aux_sym__declProc_repeat1]; ACTIONS 12697 [anon_sym_LBRACK];
   ACTIONS 6256 [aux_sym_ppUsesBlock_token1]; ACTIONS 3 [sym__space];
   ACTIONS 5 [sym_ppDirective]; ACTIONS 3 [sym_comment]; ACTIONS 1016 [sym_kDefault;
   sym_kNodefault]; ACTIONS 11641 [sym_kDispId]; ACTIONS 6249 [sym_kGeneric; sym_kOperator;
   sym_kPublished]; ACTIONS 6265 [sym_kPublic]; ACTIONS 6249 [sym_kProtected; sym_kPrivate;
   sym_kStrict; sym_kRequired; sym_kOptional]; ACTIONS 1016 [sym_kStatic; sym_kVirtual;
   sym_kAbstract; sym_kDynamic; sym_kOverride; sym_kOverload; sym_kReintroduce; sym_kStdcall;
   sym_kCdecl; sym_kCppdecl; sym_kPascal; sym_kRegister; sym_kMwpascal];
   ACTIONS 11645 [sym_kMessage]; ACTIONS 11647 [sym_kDeprecated];
   ACTIONS 1016 [sym_kExperimental; sym_kPlatform; sym_kUnimplemented; sym_kCvar];
   ACTIONS 11649 [sym_kExport]; ACTIONS 1016 [sym_kFar; sym_kNear; sym_kSafecall; sym_kAssembler;
   sym_kNostackframe; sym_kInterrupt; sym_kNoreturn; sym_kIocheck; sym_kLocal; sym_kHardfloat;
   sym_kSoftfloat; sym_kMs_abi_default; sym_kMs_abi_cdecl; sym_kSaveregisters;
   sym_kSysv_abi_default; sym_kSysv_abi_cdecl; sym_kVectorcall; sym_kVarargs; sym_kWinapi];
   ACTIONS 11651 [sym_kAlias]; ACTIONS 6249 [sym_kCase; sym_kClass; sym_kConst; sym_kConstructor;
   sym_kDestructor; sym_kEnd; sym_kFunction]; ACTIONS 1016 [sym_kInline];
   ACTIONS 6249 [sym_kProcedure; sym_kProperty; sym_kResourcestring; sym_kThreadvar; sym_kType;
   sym_kVar]].

(** State 1817. *)
Definition ts_parse_table_1817 : parse_row :=
  [STATE 2875 [sym__ppIf]; STATE 2590 [sym__procAttributeNoExt];
   STATE 2591 [sym__procAttributesPp]; STATE 14895 [sym_procAttribute];
   STATE 1901 [aux_sym__declProc_repeat1]; ACTIONS 12700 [anon_sym_LBRACK];
   ACTIONS 6294 [aux_sym_ppUsesBlock_token1]; ACTIONS 3 [sym__space];
   ACTIONS 5 [sym_ppDirective]; ACTIONS 3 [sym_comment]; ACTIONS 1016 [sym_kDefault;
   sym_kNodefault]; ACTIONS 11641 [sym_kDispId]; ACTIONS 6287 [sym_kGeneric; sym_kOperator;
   sym_kPublished]; ACTIONS 6303 [sym_kPublic]; ACTIONS 6287 [sym_kProtected; sym_kPrivate;
   sym_kStrict; sym_kRequired; sym_kOptional]; ACTIONS 1016 [sym_kStatic; sym_kVirtual;
   sym_kAbstract; sym_kDynamic; sym_kOverride; sym_kOverload; sym_kReintroduce; sym_kStdcall;
   sym_kCdecl; sym_kCppdecl; sym_kPascal; sym_kRegister; sym_kMwpascal];
   ACTIONS 11645 [sym_kMessage]; ACTIONS 11647 [sym_kDeprecated];
   ACTIONS 1016 [sym_kExperimental; sym_kPlatform; sym_kUnimplemented; sym_kCvar];
   ACTIONS 11649 [sym_kExport]; ACTIONS 1016 [sym_kFar; sym_kNear; sym_kSafecall; sym_kAssembler;
   sym_kNostackframe; sym_kInterrupt; sym_kNoreturn; sym_kIocheck; sym_kLocal; sym_kHardfloat;
   sym_kSoftfloat; sym_kMs_abi_default; sym_kMs_abi_cdecl; sym_kSaveregisters;
   sym_kSysv_abi_default; sym_kSysv_abi_cdecl; sym_kVectorcall; sym_kVarargs; sym_kWinapi];
   ACTIONS 11651 [sym_kAlias]; ACTIONS 6287 [sym_kCase; sym_kClass; sym_kConst; sym_kConstructor;
   sym_kDestructor; sym_kEnd; sym_kFunction]; ACTIONS 1016 [sym_kInline];
   ACTIONS 6287 [sym_kProcedure; sym_kProperty; sym_kResourcestring; sym_kThreadvar; sym_kType;
   sym_kVar]].

(** State 1818. *)
Definition ts_parse_table_1818 : parse_row :=
  [STATE 2875 [sym__ppIf]; STATE 2590 [sym__procAttributeNoExt];
   STATE 2591 [sym__procAttributesPp]; STATE 14895 [sym_procAttribute];
   STATE 1824 [aux_sym__declProc_repeat1]; ACTIONS 12703 [anon_sym_LBRACK];
   ACTIONS 5346 [aux_sym_ppUsesBlock_token1]; ACTIONS 3 [sym__space];
   ACTIONS 5 [sym_ppDirective]; ACTIONS 3 [sym_comment]; ACTIONS 1016 [sym_kDefault;
   sym_kNodefault]; ACTIONS 11641 [sym_kDispId]; ACTIONS 5339 [sym_kGeneric; sym_kOperator;
   sym_kPublished]; ACTIONS 5355 [sym_kPublic]; ACTIONS 5339 [sym_kProtected; sym_kPrivate;
   sym_kStrict; sym_kRequired; sym_kOptional]; ACTIONS 1016 [sym_kStatic; sym_kVirtual;
   sym_kAbstract; sym_kDynamic; sym_kOverride; sym_kOverload; sym_kReintroduce; sym_kStdcall;
   sym_kCdecl; sym_kCppdecl; sym_kPascal; sym_kRegister; sym_kMwpascal];
   ACTIONS 11645 [sym_kMessage]; ACTIONS 11647 [sym_kDeprecated];
   ACTIONS 1016 [sym_kExperimental; sym_kPlatform; sym_kUnimplemented; sym_kCvar];
   ACTIONS 11649 [sym_kExport]; ACTIONS 1016 [sym_kFar; sym_kNear; sym_kSafecall; sym_kAssembler;
   sym_kNostackframe; sym_kInterrupt; sym_kNoreturn; sym_kIocheck; sym_kLocal; sym_kHardfloat;
   sym_kSoftfloat; sym_kMs_abi_default; sym_kMs_abi_cdecl; sym_kSaveregisters;
   sym_kSysv_abi_default; sym_kSysv_abi_cdecl; sym_kVectorcall; sym_kVarargs; sym_kWinapi];
   ACTIONS 11651 [sym_kAlias]; ACTIONS 5339 [sym_kCase; sym_kClass; sym_kConst; sym_kConstructor;
   sym_kDestructor; sym_kEnd; sym_kFunction]; ACTIONS 1016 [sym_kInline];
   ACTIONS 5339 [sym_kProcedure; sym_kProperty; sym_kResourcestring; sym_kThreadvar; sym_kType;
   sym_kVar]].

(** State 1819. *)
Definition ts_parse_table_1819 : parse_row :=
  [STATE 2875 [sym__ppIf]; STATE 2590 [sym__procAttributeNoExt];
   STATE 2591 [sym__procAttributesPp]; STATE 14895 [sym_procAttribute];
   STATE 1901 [aux_sym__declProc_repeat1]; ACTIONS 12706 [anon_sym_LBRACK];
   ACTIONS 6712 [aux_sym_ppUsesBlock_token1]; ACTIONS 3 [sym__space];
   ACTIONS 5 [sym_ppDirective]; ACTIONS 3 [sym_comment]; ACTIONS 1016 [sym_kDefault;
   sym_kNodefault]; ACTIONS 11641 [sym_kDispId]; ACTIONS 6705 [sym_kGeneric; sym_kOperator;
   sym_kPublished]; ACTIONS 6721 [sym_kPublic]; ACTIONS 6705 [sym_kProtected; sym_kPrivate;
   sym_kStrict; sym_kRequired; sym_kOptional]; ACTIONS 1016 [sym_kStatic; sym_kVirtual;
   sym_kAbstract; sym_kDynamic; sym_kOverride; sym_kOverload; sym_kReintroduce; sym_kStdcall;
   sym_kCdecl; sym_kCppdecl; sym_kPascal; sym_kRegister; sym_kMwpascal];
   ACTIONS 11645 [sym_kMessage]; ACTIONS 11647 [sym_kDeprecated];
   ACTIONS 1016 [sym_kExperimental; sym_kPlatform; sym_kUnimplemented; sym_kCvar];
   ACTIONS 11649 [sym_kExport]; ACTIONS 1016 [sym_kFar; sym_kNear; sym_kSafecall; sym_kAssembler;
   sym_kNostackframe; sym_kInterrupt; sym_kNoreturn; sym_kIocheck; sym_kLocal; sym_kHardfloat;
   sym_kSoftfloat; sym_kMs_abi_default; sym_kMs_abi_cdecl; sym_kSaveregisters;
   sym_kSysv_abi_default; sym_kSysv_abi_cdecl; sym_kVectorcall; sym_kVarargs; sym_kWinapi];
   ACTIONS 11651 [sym_kAlias]; ACTIONS 6705 [sym_kCase; sym_kClass; sym_kConst; sym_kConstructor;
   sym_kDestructor; sym_kEnd; sym_kFunction]; ACTIONS 1016 [sym_kInline];
   ACTIONS 6705 [sym_kProcedure; sym_kProperty; sym_kResourcestring; sym_kThreadvar; sym_kType;
   sym_kVar]].

(** State 1820. *)
Definition ts_parse_table_1820 : parse_row :=
  [STATE 2875 [sym__ppIf]; STATE 2590 [sym__procAttributeNoExt];
   STATE 2591 [sym__procAttributesPp]; STATE 14895 [sym_procAttribute];
   STATE 1901 [aux_sym__declProc_repeat1]; ACTIONS 12709 [anon_sym_LBRACK];
   ACTIONS 6498 [aux_sym_ppUsesBlock_token1]; ACTIONS 3 [sym__space];
   ACTIONS 5 [sym_ppDirective]; ACTIONS 3 [sym_comment]; ACTIONS 1016 [sym_kDefault;
   sym_kNodefault]; ACTIONS 11641 [sym_kDispId]; ACTIONS 6491 [sym_kGeneric; sym_kOperator;
   sym_kPublished]; ACTIONS 6507 [sym_kPublic]; ACTIONS 6491 [sym_kProtected; sym_kPrivate;
   sym_kStrict; sym_kRequired; sym_kOptional]; ACTIONS 1016 [sym_kStatic; sym_kVirtual;
   sym_kAbstract; sym_kDynamic; sym_kOverride; sym_kOverload; sym_kReintroduce; sym_kStdcall;
   sym_kCdecl; sym_kCppdecl; sym_kPascal; sym_kRegister; sym_kMwpascal];
   ACTIONS 11645 [sym_kMessage]; ACTIONS 11647 [sym_kDeprecated];
   ACTIONS 1016 [sym_kExperimental; sym_kPlatform; sym_kUnimplemented; sym_kCvar];
   ACTIONS 11649 [sym_kExport]; ACTIONS 1016 [sym_kFar; sym_kNear; sym_kSafecall; sym_kAssembler;
   sym_kNostackframe; sym_kInterrupt; sym_kNoreturn; sym_kIocheck; sym_kLocal; sym_kHardfloat;
   sym_kSoftfloat; sym_kMs_abi_default; sym_kMs_abi_cdecl; sym_kSaveregisters;
   sym_kSysv_abi_default; sym_kSysv_abi_cdecl; sym_kVectorcall; sym_kVarargs; sym_kWinapi];
   ACTIONS 11651 [sym_kAlias]; ACTIONS 6491 [sym_kCase; sym_kClass; sym_kConst; sym_kConstructor;
   sym_kDestructor; sym_kEnd; sym_kFunction]; ACTIONS 1016 [sym_kInline];
   ACTIONS 6491 [sym_kProcedure; sym_kProperty; sym_kResourcestring; sym_kThreadvar; sym_kType;
   sym_kVar]].

(** State 1821. *)
Definition ts_parse_table_1821 : parse_row :=
  [STATE 2875 [sym__ppIf]; STATE 2590 [sym__procAttributeNoExt];
   STATE 2591 [sym__procAttributesPp]; STATE 14895 [sym_procAttribute];
   STATE 1826 [aux_sym__declProc_repeat1]; ACTIONS 12712 [anon_sym_LBRACK];
   ACTIONS 7286 [aux_sym_ppUsesBlock_token1]; ACTIONS 3 [sym__space];
   ACTIONS 5 [sym_ppDirective]; ACTIONS 3 [sym_comment]; ACTIONS 1016 [sym_kDefault;
   sym_kNodefault]; ACTIONS 11641 [sym_kDispId]; ACTIONS 7279 [sym_kGeneric; sym_kOperator;
   sym_kPublished]; ACTIONS 7295 [sym_kPublic]; ACTIONS 7279 [sym_kProtected; sym_kPrivate;
   sym_kStrict; sym_kRequired; sym_kOptional]; ACTIONS 1016 [sym_kStatic; sym_kVirtual;
   sym_kAbstract; sym_kDynamic; sym_kOverride; sym_kOverload; sym_kReintroduce; sym_kStdcall;
   sym_kCdecl; sym_kCppdecl; sym_kPascal; sym_kRegister; sym_kMwpascal];
   ACTIONS 11645 [sym_kMessage]; ACTIONS 11647 [sym_kDeprecated];
   ACTIONS 1016 [sym_kExperimental; sym_kPlatform; sym_kUnimplemented; sym_kCvar];
   ACTIONS 11649 [sym_kExport]; ACTIONS 1016 [sym_kFar; sym_kNear; sym_kSafecall; sym_kAssembler;
   sym_kNostackframe; sym_kInterrupt; sym_kNoreturn; sym_kIocheck; sym_kLocal; sym_kHardfloat;
   sym_kSoftfloat; sym_kMs_abi_default; sym_kMs_abi_cdecl; sym_kSaveregisters;
   sym_kSysv_abi_default; sym_kSysv_abi_cdecl; sym_kVectorcall; sym_kVarargs; sym_kWinapi];
   ACTIONS 11651 [sym_kAlias]; ACTIONS 7279 [sym_kCase; sym_kClass; sym_kConst; sym_kConstructor;
   sym_kDestructor; sym_kEnd; sym_kFunction]; ACTIONS 1016 [sym_kInline];
   ACTIONS 7279 [sym_kProcedure; sym_kProperty; sym_kResourcestring; sym_kThreadvar; sym_kType;
   sym_kVar]].

(** State 1822. *)
Definition ts_parse_table_1822 : parse_row :=
  [STATE 2875 [sym__ppIf]; STATE 2590 [sym__procAttributeNoExt];
   STATE 2591 [sym__procAttributesPp]; STATE 14895 [sym_procAttribute];
   STATE 1901 [aux_sym__declProc_repeat1]; ACTIONS 12715 [anon_sym_LBRACK];
   ACTIONS 6467 [aux_sym_ppUsesBlock_token1]; ACTIONS 3 [sym__space];
   ACTIONS 5 [sym_ppDirective]; ACTIONS 3 [sym_comment]; ACTIONS 1016 [sym_kDefault;
   sym_kNodefault]; ACTIONS 11641 [sym_kDispId]; ACTIONS 6460 [sym_kGeneric; sym_kOperator;
   sym_kPublished]; ACTIONS 6476 [sym_kPublic]; ACTIONS 6460 [sym_kProtected; sym_kPrivate;
   sym_kStrict; sym_kRequired; sym_kOptional]; ACTIONS 1016 [sym_kStatic; sym_kVirtual;
   sym_kAbstract; sym_kDynamic; sym_kOverride; sym_kOverload; sym_kReintroduce; sym_kStdcall;
   sym_kCdecl; sym_kCppdecl; sym_kPascal; sym_kRegister; sym_kMwpascal];
   ACTIONS 11645 [sym_kMessage]; ACTIONS 11647 [sym_kDeprecated];
   ACTIONS 1016 [sym_kExperimental; sym_kPlatform; sym_kUnimplemented; sym_kCvar];
   ACTIONS 11649 [sym_kExport]; ACTIONS 1016 [sym_kFar; sym_kNear; sym_kSafecall; sym_kAssembler;
   sym_kNostackframe; sym_kInterrupt; sym_kNoreturn; sym_kIocheck; sym_kLocal; sym_kHardfloat;
   sym_kSoftfloat; sym_kMs_abi_default; sym_kMs_abi_cdecl; sym_kSaveregisters;
   sym_kSysv_abi_default; sym_kSysv_abi_cdecl; sym_kVectorcall; sym_kVarargs; sym_kWinapi];
   ACTIONS 11651 [sym_kAlias]; ACTIONS 6460 [sym_kCase; sym_kClass; sym_kConst; sym_kConstructor;
   sym_kDestructor; sym_kEnd; sym_kFunction]; ACTIONS 1016 [sym_kInline];
   ACTIONS 6460 [sym_kProcedure; sym_kProperty; sym_kResourcestring; sym_kThreadvar; sym_kType;
   sym_kVar]].

(** State 1823. *)
Definition ts_parse_table_1823 : parse_row :=
  [STATE 2875 [sym__ppIf]; STATE 2590 [sym__procAttributeNoExt];
   STATE 2591 [sym__procAttributesPp]; STATE 14895 [sym_procAttribute];
   STATE 1901 [aux_sym__declProc_repeat1]; ACTIONS 12718 [anon_sym_LBRACK];
   ACTIONS 6889 [aux_sym_ppUsesBlock_token1]; ACTIONS 3 [sym__space];
   ACTIONS 5 [sym_ppDirective]; ACTIONS 3 [sym_comment]; ACTIONS 1016 [sym_kDefault;
   sym_kNodefault]; ACTIONS 11641 [sym_kDispId]; ACTIONS 6882 [sym_kGeneric; sym_kOperator;
   sym_kPublished]; ACTIONS 6898 [sym_kPublic]; ACTIONS 6882 [sym_kProtected; sym_kPrivate;
   sym_kStrict; sym_kRequired; sym_kOptional]; ACTIONS 1016 [sym_kStatic; sym_kVirtual;
   sym_kAbstract; sym_kDynamic; sym_kOverride; sym_kOverload; sym_kReintroduce; sym_kStdcall;
   sym_kCdecl; sym_kCppdecl; sym_kPascal; sym_kRegister; sym_kMwpascal];
   ACTIONS 11645 [sym_kMessage]; ACTIONS 11647 [sym_kDeprecated];
   ACTIONS 1016 [sym_kExperimental; sym_kPlatform; sym_kUnimplemented; sym_kCvar];
   ACTIONS 11649 [sym_kExport]; ACTIONS 1016 [sym_kFar; sym_kNear; sym_kSafecall; sym_kAssembler;
   sym_kNostackframe; sym_kInterrupt; sym_kNoreturn; sym_kIocheck; sym_kLocal; sym_kHardfloat;
   sym_kSoftfloat; sym_kMs_abi_default; sym_kMs_abi_cdecl; sym_kSaveregisters;
   sym_kSysv_abi_default; sym_kSysv_abi_cdecl; sym_kVectorcall; sym_kVarargs; sym_kWinapi];
   ACTIONS 11651 [sym_kAlias]; ACTIONS 6882 [sym_kCase; sym_kClass; sym_kConst; sym_kConstructor;
   sym_kDestructor; sym_kEnd; sym_kFunction]; ACTIONS 1016 [sym_kInline];
   ACTIONS 6882 [sym_kProcedure; sym_kProperty; sym_kResourcestring; sym_kThreadvar; sym_kType;
   sym_kVar]].

(** State 1824. *)
Definition ts_parse_table_1824 : parse_row :=
  [STATE 2875 [sym__ppIf]; STATE 2590 [sym__procAttributeNoExt];
   STATE 2591 [sym__procAttributesPp]; STATE 14895 [sym_procAttribute];
   STATE 1901 [aux_sym__declProc_repeat1]; ACTIONS 12721 [anon_sym_LBRACK];
   ACTIONS 7153 [aux_sym_ppUsesBlock_token1]; ACTIONS 3 [sym__space];
   ACTIONS 5 [sym_ppDirective]; ACTIONS 3 [sym_comment]; ACTIONS 1016 [sym_kDefault;
   sym_kNodefault]; ACTIONS 11641 [sym_kDispId]; ACTIONS 7146 [sym_kGeneric; sym_kOperator;
   sym_kPublished]; ACTIONS 7162 [sym_kPublic]; ACTIONS 7146 [sym_kProtected; sym_kPrivate;
   sym_kStrict; sym_kRequired; sym_kOptional]; ACTIONS 1016 [sym_kStatic; sym_kVirtual;
   sym_kAbstract; sym_kDynamic; sym_kOverride; sym_kOverload; sym_kReintroduce; sym_kStdcall;
   sym_kCdecl; sym_kCppdecl; sym_kPascal; sym_kRegister; sym_kMwpascal];
   ACTIONS 11645 [sym_kMessage]; ACTIONS 11647 [sym_kDeprecated];
   ACTIONS 1016 [sym_kExperimental; sym_kPlatform; sym_kUnimplemented; sym_kCvar];
   ACTIONS 11649 [sym_kExport]; ACTIONS 1016 [sym_kFar; sym_kNear; sym_kSafecall; sym_kAssembler;
   sym_kNostackframe; sym_kInterrupt; sym_kNoreturn; sym_kIocheck; sym_kLocal; sym_kHardfloat;
   sym_kSoftfloat; sym_kMs_abi_default; sym_kMs_abi_cdecl; sym_kSaveregisters;
   sym_kSysv_abi_default; sym_kSysv_abi_cdecl; sym_kVectorcall; sym_kVarargs; sym_kWinapi];
   ACTIONS 11651 [sym_kAlias]; ACTIONS 7146 [sym_kCase; sym_kClass; sym_kConst; sym_kConstructor;
   sym_kDestructor; sym_kEnd; sym_kFunction]; ACTIONS 1016 [sym_kInline];
   ACTIONS 7146 [sym_kProcedure; sym_kProperty; sym_kResourcestring; sym_kThreadvar; sym_kType;
   sym_kVar]].

(** State 1825. *)
Definition ts_parse_table_1825 : parse_row :=
  [STATE 2875 [sym__ppIf]; STATE 2590 [sym__procAttributeNoExt];
   STATE 2591 [sym__procAttributesPp]; STATE 14895 [sym_procAttribute];
   STATE 1827 [aux_sym__declProc_repeat1]; ACTIONS 12724 [anon_sym_LBRACK];
   ACTIONS 4569 [aux_sym_ppUsesBlock_token1]; ACTIONS 3 [sym__space];
   ACTIONS 5 [sym_ppDirective]; ACTIONS 3 [sym_comment]; ACTIONS 1016 [sym_kDefault;
   sym_kNodefault]; ACTIONS 11641 [sym_kDispId]; ACTIONS 4562 [sym_kGeneric; sym_kOperator;
   sym_kPublished]; ACTIONS 4578 [sym_kPublic]; ACTIONS 4562 [sym_kProtected; sym_kPrivate;
   sym_kStrict; sym_kRequired; sym_kOptional]; ACTIONS 1016 [sym_kStatic; sym_kVirtual;
   sym_kAbstract; sym_kDynamic; sym_kOverride; sym_kOverload; sym_kReintroduce; sym_kStdcall;
   sym_kCdecl; sym_kCppdecl; sym_kPascal; sym_kRegister; sym_kMwpascal];
   ACTIONS 11645 [sym_kMessage]; ACTIONS 11647 [sym_kDeprecated];
   ACTIONS 1016 [sym_kExperimental; sym_kPlatform; sym_kUnimplemented; sym_kCvar];
   ACTIONS 11649 [sym_kExport]; ACTIONS 1016 [sym_kFar; sym_kNear; sym_kSafecall; sym_kAssembler;
   sym_kNostackframe; sym_kInterrupt; sym_kNoreturn; sym_kIocheck; sym_kLocal; sym_kHardfloat;
   sym_kSoftfloat; sym_kMs_abi_default; sym_kMs_abi_cdecl; sym_kSaveregisters;
   sym_kSysv_abi_default; sym_kSysv_abi_cdecl; sym_kVectorcall; sym_kVarargs; sym_kWinapi];
   ACTIONS 11651 [sym_kAlias]; ACTIONS 4562 [sym_kCase; sym_kClass; sym_kConst; sym_kConstructor;
   sym_kDestructor; sym_kEnd; sym_kFunction]; ACTIONS 1016 [sym_kInline];
   ACTIONS 4562 [sym_kProcedure; sym_kProperty; sym_kResourcestring; sym_kThreadvar; sym_kType;
   sym_kVar]].

(** State 1826. *)
Definition ts_parse_table_1826 : parse_row :=
  [STATE 2875 [sym__ppIf]; STATE 2590 [sym__procAttributeNoExt];
   STATE 2591 [sym__procAttributesPp]; STATE 14895 [sym_procAttribute];
   STATE 1901 [aux_sym__declProc_repeat1]; ACTIONS 12727 [anon_sym_LBRACK];
   ACTIONS 4641 [aux_sym_ppUsesBlock_token1]; ACTIONS 3 [sym__space];
   ACTIONS 5 [sym_ppDirective]; ACTIONS 3 [sym_comment]; ACTIONS 1016 [sym_kDefault;
   sym_kNodefault]; ACTIONS 11641 [sym_kDispId]; ACTIONS 4634 [sym_kGeneric; sym_kOperator;
   sym_kPublished]; ACTIONS 4650 [sym_kPublic]; ACTIONS 4634 [sym_kProtected; sym_kPrivate;
   sym_kStrict; sym_kRequired; sym_kOptional]; ACTIONS 1016 [sym_kStatic; sym_kVirtual;
   sym_kAbstract; sym_kDynamic; sym_kOverride; sym_kOverload; sym_kReintroduce; sym_kStdcall;
   sym_kCdecl; sym_kCppdecl; sym_kPascal; sym_kRegister; sym_kMwpascal];
   ACTIONS 11645 [sym_kMessage]; ACTIONS 11647 [sym_kDeprecated];
   ACTIONS 1016 [sym_kExperimental; sym_kPlatform; sym_kUnimplemented; sym_kCvar];
   ACTIONS 11649 [sym_kExport]; ACTIONS 1016 [sym_kFar; sym_kNear; sym_kSafecall; sym_kAssembler;
   sym_kNostackframe; sym_kInterrupt; sym_kNoreturn; sym_kIocheck; sym_kLocal; sym_kHardfloat;
   sym_kSoftfloat; sym_kMs_abi_default; sym_kMs_abi_cdecl; sym_kSaveregisters;
   sym_kSysv_abi_default; sym_kSysv_abi_cdecl; sym_kVectorcall; sym_kVarargs; sym_kWinapi];
   ACTIONS 11651 [sym_kAlias]; ACTIONS 4634 [sym_kCase; sym_kClass; sym_kConst; sym_kConstructor;
   sym_kDestructor; sym_kEnd; sym_kFunction]; ACTIONS 1016 [sym_kInline];
   ACTIONS 4634 [sym_kProcedure; sym_kProperty; sym_kResourcestring; sym_kThreadvar; sym_kType;
   sym_kVar]].

(** State 1827. *)
Definition ts_parse_table_1827 : parse_row :=
  [STATE 2875 [sym__ppIf]; STATE 2590 [sym__procAttributeNoExt];
   STATE 2591 [sym__procAttributesPp]; STATE 14895 [sym_procAttribute];
   STATE 1901 [aux_sym__declProc_repeat1]; ACTIONS 12730 [anon_sym_LBRACK];
   ACTIONS 5540 [aux_sym_ppUsesBlock_token1]; ACTIONS 3 [sym__space];
   ACTIONS 5 [sym_ppDirective]; ACTIONS 3 [sym_comment]; ACTIONS 1016 [sym_kDefault;
   sym_kNodefault]; ACTIONS 11641 [sym_kDispId]; ACTIONS 5533 [sym_kGeneric; sym_kOperator;
   sym_kPublished]; ACTIONS 5549 [sym_kPublic]; ACTIONS 5533 [sym_kProtected; sym_kPrivate;
   sym_kStrict; sym_kRequired; sym_kOptional]; ACTIONS 1016 [sym_kStatic; sym_kVirtual;
   sym_kAbstract; sym_kDynamic; sym_kOverride; sym_kOverload; sym_kReintroduce; sym_kStdcall;
   sym_kCdecl; sym_kCppdecl; sym_kPascal; sym_kRegister; sym_kMwpascal];
   ACTIONS 11645 [sym_kMessage]; ACTIONS 11647 [sym_kDeprecated];
   ACTIONS 1016 [sym_kExperimental; sym_kPlatform; sym_kUnimplemented; sym_kCvar];
   ACTIONS 11649 [sym_kExport]; ACTIONS 1016 [sym_kFar; sym_kNear; sym_kSafecall; sym_kAssembler;
   sym_kNostackframe; sym_kInterrupt; sym_kNoreturn; sym_kIocheck; sym_kLocal; sym_kHardfloat;
   sym_kSoftfloat; sym_kMs_abi_default; sym_kMs_abi_cdecl; sym_kSaveregisters;
   sym_kSysv_abi_default; sym_kSysv_abi_cdecl; sym_kVectorcall; sym_kVarargs; sym_kWinapi];
   ACTIONS 11651 [sym_kAlias]; ACTIONS 5533 [sym_kCase; sym_kClass; sym_kConst; sym_kConstructor;
   sym_kDestructor; sym_kEnd; sym_kFunction]; ACTIONS 1016 [sym_kInline];
   ACTIONS 5533 [sym_kProcedure; sym_kProperty; sym_kResourcestring; sym_kThreadvar; sym_kType;
   sym_kVar]].

(** State 1828. *)
Definition ts_parse_table_1828 : parse_row :=
  [STATE 2907 [sym__ppIf]; STATE 2561 [sym__procAttributeNoExt];
   STATE 2564 [sym__procAttributesPp]; STATE 15242 [sym_procAttribute];
   STATE 1830 [aux_sym__declProc_repeat1]; ACTIONS 12733 [anon_sym_LBRACK];
   ACTIONS 5633 [aux_sym_ppUsesBlock_token1]; ACTIONS 3 [sym__space];
   ACTIONS 5 [sym_ppDirective]; ACTIONS 3 [sym_comment]; ACTIONS 1016 [sym_kDefault;
   sym_kNodefault]; ACTIONS 11641 [sym_kDispId]; ACTIONS 5626 [sym_kGeneric; sym_kOperator];
   ACTIONS 11643 [sym_kPublic]; ACTIONS 1016 [sym_kStatic; sym_kVirtual; sym_kAbstract;
   sym_kDynamic; sym_kOverride; sym_kOverload; sym_kReintroduce; sym_kStdcall; sym_kCdecl;
   sym_kCppdecl; sym_kPascal; sym_kRegister; sym_kMwpascal]; ACTIONS 11645 [sym_kMessage];
   ACTIONS 11647 [sym_kDeprecated]; ACTIONS 1016 [sym_kExperimental; sym_kPlatform;
   sym_kUnimplemented; sym_kCvar]; ACTIONS 11649 [sym_kExport]; ACTIONS 1016 [sym_kFar;
   sym_kNear; sym_kSafecall; sym_kAssembler; sym_kNostackframe; sym_kInterrupt; sym_kNoreturn;
   sym_kIocheck; sym_kLocal; sym_kHardfloat; sym_kSoftfloat; sym_kMs_abi_default;
   sym_kMs_abi_cdecl; sym_kSaveregisters; sym_kSysv_abi_default; sym_kSysv_abi_cdecl;
   sym_kVectorcall; sym_kVarargs; sym_kWinapi]; ACTIONS 11651 [sym_kAlias];
   ACTIONS 5626 [sym_kClass; sym_kConst; sym_kConstructor; sym_kDestructor; sym_kEnd;
   sym_kExports; sym_kFinalization; sym_kFunction; sym_kImplementation; sym_kInitialization];
   ACTIONS 1016 [sym_kInline]; ACTIONS 5626 [sym_kInterface; sym_kLabel; sym_kProcedure;
   sym_kProperty; sym_kResourcestring; sym_kThreadvar; sym_kType; sym_kUses; sym_kVar]].

(** State 1829. *)
Definition ts_parse_table_1829 : parse_row :=
  [STATE 2907 [sym__ppIf]; STATE 2561 [sym__procAttributeNoExt];
   STATE 2564 [sym__procAttributesPp]; STATE 15242 [sym_procAttribute];
   STATE 1834 [aux_sym__declProc_repeat1]; ACTIONS 12736 [anon_sym_LBRACK];
   ACTIONS 6560 [aux_sym_ppUsesBlock_token1]; ACTIONS 3 [sym__space];
   ACTIONS 5 [sym_ppDirective]; ACTIONS 3 [sym_comment]; ACTIONS 1016 [sym_kDefault;
   sym_kNodefault]; ACTIONS 11641 [sym_kDispId]; ACTIONS 6553 [sym_kGeneric; sym_kOperator];
   ACTIONS 11643 [sym_kPublic]; ACTIONS 1016 [sym_kStatic; sym_kVirtual; sym_kAbstract;
   sym_kDynamic; sym_kOverride; sym_kOverload; sym_kReintroduce; sym_kStdcall; sym_kCdecl;
   sym_kCppdecl; sym_kPascal; sym_kRegister; sym_kMwpascal]; ACTIONS 11645 [sym_kMessage];
   ACTIONS 11647 [sym_kDeprecated]; ACTIONS 1016 [sym_kExperimental; sym_kPlatform;
   sym_kUnimplemented; sym_kCvar]; ACTIONS 11649 [sym_kExport]; ACTIONS 1016 [sym_kFar;
   sym_kNear; sym_kSafecall; sym_kAssembler; sym_kNostackframe; sym_kInterrupt; sym_kNoreturn;
   sym_kIocheck; sym_kLocal; sym_kHardfloat; sym_kSoftfloat; sym_kMs_abi_default;
   sym_kMs_abi_cdecl; sym_kSaveregisters; sym_kSysv_abi_default; sym_kSysv_abi_cdecl;
   sym_kVectorcall; sym_kVarargs; sym_kWinapi]; ACTIONS 11651 [sym_kAlias];
   ACTIONS 6553 [sym_kClass; sym_kConst; sym_kConstructor; sym_kDestructor; sym_kEnd;
   sym_kExports; sym_kFinalization; sym_kFunction; sym_kImplementation; sym_kInitialization];
   ACTIONS 1016 [sym_kInline]; ACTIONS 6553 [sym_kInterface; sym_kLabel; sym_kProcedure;
   sym_kProperty; sym_kResourcestring; sym_kThreadvar; sym_kType; sym_kUses; sym_kVar]].

(** State 1830. *)
Definition ts_parse_table_1830 : parse_row :=
  [STATE 2907 [sym__ppIf]; STATE 2561 [sym__procAttributeNoExt];
   STATE 2564 [sym__procAttributesPp]; STATE 15242 [sym_procAttribute];
   STATE 1716 [aux_sym__declProc_repeat1]; ACTIONS 12739 [anon_sym_LBRACK];
   ACTIONS 6653 [aux_sym_ppUsesBlock_token1]; ACTIONS 3 [sym__space];
   ACTIONS 5 [sym_ppDirective]; ACTIONS 3 [sym_comment]; ACTIONS 1016 [sym_kDefault;
   sym_kNodefault]; ACTIONS 11641 [sym_kDispId]; ACTIONS 6646 [sym_kGeneric; sym_kOperator];
   ACTIONS 11643 [sym_kPublic]; ACTIONS 1016 [sym_kStatic; sym_kVirtual; sym_kAbstract;
   sym_kDynamic; sym_kOverride; sym_kOverload; sym_kReintroduce; sym_kStdcall; sym_kCdecl;
   sym_kCppdecl; sym_kPascal; sym_kRegister; sym_kMwpascal]; ACTIONS 11645 [sym_kMessage];
   ACTIONS 11647 [sym_kDeprecated]; ACTIONS 1016 [sym_kExperimental; sym_kPlatform;
   sym_kUnimplemented; sym_kCvar]; ACTIONS 11649 [sym_kExport]; ACTIONS 1016 [sym_kFar;
   sym_kNear; sym_kSafecall; sym_kAssembler; sym_kNostackframe; sym_kInterrupt; sym_kNoreturn;
   sym_kIocheck; sym_kLocal; sym_kHardfloat; sym_kSoftfloat; sym_kMs_abi_default;
   sym_kMs_abi_cdecl; sym_kSaveregisters; sym_kSysv_abi_default; sym_kSysv_abi_cdecl;
   sym_kVectorcall; sym_kVarargs; sym_kWinapi]; ACTIONS 11651 [sym_kAlias];
   ACTIONS 6646 [sym_kClass; sym_kConst; sym_kConstructor; sym_kDestructor; sym_kEnd;
   sym_kExports; sym_kFinalization; sym_kFunction; sym_kImplementation; sym_kInitialization];
   ACTIONS 1016 [sym_kInline]; ACTIONS 6646 [sym_kInterface; sym_kLabel; sym_kProcedure;
   sym_kProperty; sym_kResourcestring; sym_kThreadvar; sym_kType; sym_kUses; sym_kVar]].

(** State 1831. *)
Definition ts_parse_table_1831 : parse_row :=
  [STATE 2907 [sym__ppIf]; STATE 2561 [sym__procAttributeNoExt];
   STATE 2564 [sym__procAttributesPp]; STATE 15242 [sym_procAttribute];
   STATE 1837 [aux_sym__declProc_repeat1]; ACTIONS 12742 [anon_sym_LBRACK];
   ACTIONS 7066 [aux_sym_ppUsesBlock_token1]; ACTIONS 3 [sym__space];
   ACTIONS 5 [sym_ppDirective]; ACTIONS 3 [sym_comment]; ACTIONS 1016 [sym_kDefault;
   sym_kNodefault]; ACTIONS 11641 [sym_kDispId]; ACTIONS 7059 [sym_kGeneric; sym_kOperator];
   ACTIONS 11643 [sym_kPublic]; ACTIONS 1016 [sym_kStatic; sym_kVirtual; sym_kAbstract;
   sym_kDynamic; sym_kOverride; sym_kOverload; sym_kReintroduce; sym_kStdcall; sym_kCdecl;
   sym_kCppdecl; sym_kPascal; sym_kRegister; sym_kMwpascal]; ACTIONS 11645 [sym_kMessage];
   ACTIONS 11647 [sym_kDeprecated]; ACTIONS 1016 [sym_kExperimental; sym_kPlatform;
   sym_kUnimplemented; sym_kCvar]; ACTIONS 11649 [sym_kExport]; ACTIONS 1016 [sym_kFar;
   sym_kNear; sym_kSafecall; sym_kAssembler; sym_kNostackframe; sym_kInterrupt; sym_kNoreturn;
   sym_kIocheck; sym_kLocal; sym_kHardfloat; sym_kSoftfloat; sym_kMs_abi_default;
   sym_kMs_abi_cdecl; sym_kSaveregisters; sym_kSysv_abi_default; sym_kSysv_abi_cdecl;
   sym_kVectorcall; sym_kVarargs; sym_kWinapi]; ACTIONS 11651 [sym_kAlias];
   ACTIONS 7059 [sym_kClass; sym_kConst; sym_kConstructor; sym_kDestructor; sym_kEnd;
   sym_kExports; sym_kFinalization; sym_kFunction; sym_kImplementation; sym_kInitialization];
   ACTIONS 1016 [sym_kInline]; ACTIONS 7059 [sym_kInterface; sym_kLabel; sym_kProcedure;
   sym_kProperty; sym_kResourcestring; sym_kThreadvar; sym_kType; sym_kUses; sym_kVar]].

(** State 1832. *)
Definition ts_parse_table_1832 : parse_row :=
  [STATE 2907 [sym__ppIf]; STATE 2561 [sym__procAttributeNoExt];
   STATE 2564 [sym__procAttributesPp]; STATE 15242 [sym_procAttribute];
   STATE 1839 [aux_sym__declProc_repeat1]; ACTIONS 12745 [anon_sym_LBRACK];
   ACTIONS 7212 [aux_sym_ppUsesBlock_token1]; ACTIONS 3 [sym__space];
   ACTIONS 5 [sym_ppDirective]; ACTIONS 3 [sym_comment]; ACTIONS 1016 [sym_kDefault;
   sym_kNodefault]; ACTIONS 11641 [sym_kDispId]; ACTIONS 7205 [sym_kGeneric; sym_kOperator];
   ACTIONS 11643 [sym_kPublic]; ACTIONS 1016 [sym_kStatic; sym_kVirtual; sym_kAbstract;
   sym_kDynamic; sym_kOverride; sym_kOverload; sym_kReintroduce; sym_kStdcall; sym_kCdecl;
   sym_kCppdecl; sym_kPascal; sym_kRegister; sym_kMwpascal]; ACTIONS 11645 [sym_kMessage];
   ACTIONS 11647 [sym_kDeprecated]; ACTIONS 1016 [sym_kExperimental; sym_kPlatform;
   sym_kUnimplemented; sym_kCvar]; ACTIONS 11649 [sym_kExport]; ACTIONS 1016 [sym_kFar;
   sym_kNear; sym_kSafecall; sym_kAssembler; sym_kNostackframe; sym_kInterrupt; sym_kNoreturn;
   sym_kIocheck; sym_kLocal; sym_kHardfloat; sym_kSoftfloat; sym_kMs_abi_default;
   sym_kMs_abi_cdecl; sym_kSaveregisters; sym_kSysv_abi_default; sym_kSysv_abi_cdecl;
   sym_kVectorcall; sym_kVarargs; sym_kWinapi]; ACTIONS 11651 [sym_kAlias];
   ACTIONS 7205 [sym_kClass; sym_kConst; sym_kConstructor; sym_kDestructor; sym_kEnd;
   sym_kExports; sym_kFinalization; sym_kFunction; sym_kImplementation; sym_kInitialization];
   ACTIONS 1016 [sym_kInline]; ACTIONS 7205 [sym_kInterface; sym_kLabel; sym_kProcedure;
   sym_kProperty; sym_kResourcestring; sym_kThreadvar; sym_kType; sym_kUses; sym_kVar]].

(** State 1833. *)
Definition ts_parse_table_1833 : parse_row :=
  [STATE 2907 [sym__ppIf]; STATE 2561 [sym__procAttributeNoExt];
   STATE 2564 [sym__procAttributesPp]; STATE 15242 [sym_procAttribute];
   STATE 1842 [aux_sym__declProc_repeat1]; ACTIONS 12748 [anon_sym_LBRACK];
   ACTIONS 7243 [aux_sym_ppUsesBlock_token1]; ACTIONS 3 [sym__space];
   ACTIONS 5 [sym_ppDirective]; ACTIONS 3 [sym_comment]; ACTIONS 1016 [sym_kDefault;
   sym_kNodefault]; ACTIONS 11641 [sym_kDispId]; ACTIONS 7236 [sym_kGeneric; sym_kOperator];
   ACTIONS 11643 [sym_kPublic]; ACTIONS 1016 [sym_kStatic; sym_kVirtual; sym_kAbstract;
   sym_kDynamic; sym_kOverride; sym_kOverload; sym_kReintroduce; sym_kStdcall; sym_kCdecl;
   sym_kCppdecl; sym_kPascal; sym_kRegister; sym_kMwpascal]; ACTIONS 11645 [sym_kMessage];
   ACTIONS 11647 [sym_kDeprecated]; ACTIONS 1016 [sym_kExperimental; sym_kPlatform;
   sym_kUnimplemented; sym_kCvar]; ACTIONS 11649 [sym_kExport]; ACTIONS 1016 [sym_kFar;
   sym_kNear; sym_kSafecall; sym_kAssembler; sym_kNostackframe; sym_kInterrupt; sym_kNoreturn;
   sym_kIocheck; sym_kLocal; sym_kHardfloat; sym_kSoftfloat; sym_kMs_abi_default;
   sym_kMs_abi_cdecl; sym_kSaveregisters; sym_kSysv_abi_default; sym_kSysv_abi_cdecl;
   sym_kVectorcall; sym_kVarargs; sym_kWinapi]; ACTIONS 11651 [sym_kAlias];
   ACTIONS 7236 [sym_kClass; sym_kConst; sym_kConstructor; sym_kDestructor; sym_kEnd;
   sym_kExports; sym_kFinalization; sym_kFunction; sym_kImplementation; sym_kInitialization];
   ACTIONS 1016 [sym_kInline]; ACTIONS 7236 [sym_kInterface; sym_kLabel; sym_kProcedure;
   sym_kProperty; sym_kResourcestring; sym_kThreadvar; sym_kType; sym_kUses; sym_kVar]].

(** State 1834. *)
Definition ts_parse_table_1834 : parse_row :=
  [STATE 2907 [sym__ppIf]; STATE 2561 [sym__procAttributeNoExt];
   STATE 2564 [sym__procAttributesPp]; STATE 15242 [sym_procAttribute];
   STATE 1716 [aux_sym__declProc_repeat1]; ACTIONS 12751 [anon_sym_LBRACK];
   ACTIONS 4945 [aux_sym_ppUsesBlock_token1]; ACTIONS 3 [sym__space];
   ACTIONS 5 [sym_ppDirective]; ACTIONS 3 [sym_comment]; ACTIONS 1016 [sym_kDefault;
   sym_kNodefault]; ACTIONS 11641 [sym_kDispId]; ACTIONS 4938 [sym_kGeneric; sym_kOperator];
   ACTIONS 11643 [sym_kPublic]; ACTIONS 1016 [sym_kStatic; sym_kVirtual; sym_kAbstract;
   sym_kDynamic; sym_kOverride; sym_kOverload; sym_kReintroduce; sym_kStdcall; sym_kCdecl;
   sym_kCppdecl; sym_kPascal; sym_kRegister; sym_kMwpascal]; ACTIONS 11645 [sym_kMessage];
   ACTIONS 11647 [sym_kDeprecated]; ACTIONS 1016 [sym_kExperimental; sym_kPlatform;
   sym_kUnimplemented; sym_kCvar]; ACTIONS 11649 [sym_kExport]; ACTIONS 1016 [sym_kFar;
   sym_kNear; sym_kSafecall; sym_kAssembler; sym_kNostackframe; sym_kInterrupt; sym_kNoreturn;
   sym_kIocheck; sym_kLocal; sym_kHardfloat; sym_kSoftfloat; sym_kMs_abi_default;
   sym_kMs_abi_cdecl; sym_kSaveregisters; sym_kSysv_abi_default; sym_kSysv_abi_cdecl;
   sym_kVectorcall; sym_kVarargs; sym_kWinapi]; ACTIONS 11651 [sym_kAlias];
   ACTIONS 4938 [sym_kClass; sym_kConst; sym_kConstructor; sym_kDestructor; sym_kEnd;
   sym_kExports; sym_kFinalization; sym_kFunction; sym_kImplementation; sym_kInitialization];
   ACTIONS 1016 [sym_kInline]; ACTIONS 4938 [sym_kInterface; sym_kLabel; sym_kProcedure;
   sym_kProperty; sym_kResourcestring; sym_kThreadvar; sym_kType; sym_kUses; sym_kVar]].

(** State 1835. *)
Definition ts_parse_table_1835 : parse_row :=
  [STATE 2907 [sym__ppIf]; STATE 2561 [sym__procAttributeNoExt];
   STATE 2564 [sym__procAttributesPp]; STATE 15242 [sym_procAttribute];
   STATE 1846 [aux_sym__declProc_repeat1]; ACTIONS 12754 [anon_sym_LBRACK];
   ACTIONS 5509 [aux_sym_ppUsesBlock_token1]; ACTIONS 3 [sym__space];
   ACTIONS 5 [sym_ppDirective]; ACTIONS 3 [sym_comment]; ACTIONS 1016 [sym_kDefault;
   sym_kNodefault]; ACTIONS 11641 [sym_kDispId]; ACTIONS 5502 [sym_kGeneric; sym_kOperator];
   ACTIONS 11643 [sym_kPublic]; ACTIONS 1016 [sym_kStatic; sym_kVirtual; sym_kAbstract;
   sym_kDynamic; sym_kOverride; sym_kOverload; sym_kReintroduce; sym_kStdcall; sym_kCdecl;
   sym_kCppdecl; sym_kPascal; sym_kRegister; sym_kMwpascal]; ACTIONS 11645 [sym_kMessage];
   ACTIONS 11647 [sym_kDeprecated]; ACTIONS 1016 [sym_kExperimental; sym_kPlatform;
   sym_kUnimplemented; sym_kCvar]; ACTIONS 11649 [sym_kExport]; ACTIONS 1016 [sym_kFar;
   sym_kNear; sym_kSafecall; sym_kAssembler; sym_kNostackframe; sym_kInterrupt; sym_kNoreturn;
   sym_kIocheck; sym_kLocal; sym_kHardfloat; sym_kSoftfloat; sym_kMs_abi_default;
   sym_kMs_abi_cdecl; sym_kSaveregisters; sym_kSysv_abi_default; sym_kSysv_abi_cdecl;
   sym_kVectorcall; sym_kVarargs; sym_kWinapi]; ACTIONS 11651 [sym_kAlias];
   ACTIONS 5502 [sym_kClass; sym_kConst; sym_kConstructor; sym_kDestructor; sym_kEnd;
   sym_kExports; sym_kFinalization; sym_kFunction; sym_kImplementation; sym_kInitialization];
   ACTIONS 1016 [sym_kInline]; ACTIONS 5502 [sym_kInterface; sym_kLabel; sym_kProcedure;
   sym_kProperty; sym_kResourcestring; sym_kThreadvar; sym_kType; sym_kUses; sym_kVar]].

(** State 1836. *)
Definition ts_parse_table_1836 : parse_row :=
  [STATE 2907 [sym__ppIf]; STATE 2561 [sym__procAttributeNoExt];
   STATE 2564 [sym__procAttributesPp]; STATE 15242 [sym_procAttribute];
   STATE 1847 [aux_sym__declProc_repeat1]; ACTIONS 12757 [anon_sym_LBRACK];
   ACTIONS 3825 [aux_sym_ppUsesBlock_token1]; ACTIONS 3 [sym__space];
   ACTIONS 5 [sym_ppDirective]; ACTIONS 3 [sym_comment]; ACTIONS 1016 [sym_kDefault;
   sym_kNodefault]; ACTIONS 11641 [sym_kDispId]; ACTIONS 3818 [sym_kGeneric; sym_kOperator];
   ACTIONS 11643 [sym_kPublic]; ACTIONS 1016 [sym_kStatic; sym_kVirtual; sym_kAbstract;
   sym_kDynamic; sym_kOverride; sym_kOverload; sym_kReintroduce; sym_kStdcall; sym_kCdecl;
   sym_kCppdecl; sym_kPascal; sym_kRegister; sym_kMwpascal]; ACTIONS 11645 [sym_kMessage];
   ACTIONS 11647 [sym_kDeprecated]; ACTIONS 1016 [sym_kExperimental; sym_kPlatform;
   sym_kUnimplemented; sym_kCvar]; ACTIONS 11649 [sym_kExport]; ACTIONS 1016 [sym_kFar;
   sym_kNear; sym_kSafecall; sym_kAssembler; sym_kNostackframe; sym_kInterrupt; sym_kNoreturn;
   sym_kIocheck; sym_kLocal; sym_kHardfloat; sym_kSoftfloat; sym_kMs_abi_default;
   sym_kMs_abi_cdecl; sym_kSaveregisters; sym_kSysv_abi_default; sym_kSysv_abi_cdecl;
   sym_kVectorcall; sym_kVarargs; sym_kWinapi]; ACTIONS 11651 [sym_kAlias];
   ACTIONS 3818 [sym_kClass; sym_kConst; sym_kConstructor; sym_kDestructor; sym_kEnd;
   sym_kExports; sym_kFinalization; sym_kFunction; sym_kImplementation; sym_kInitialization];
   ACTIONS 1016 [sym_kInline]; ACTIONS 3818 [sym_kInterface; sym_kLabel; sym_kProcedure;
   sym_kProperty; sym_kResourcestring; sym_kThreadvar; sym_kType; sym_kUses; sym_kVar]].

(** State 1837. *)
Definition ts_parse_table_1837 : parse_row :=
  [STATE 2907 [sym__ppIf]; STATE 2561 [sym__procAttributeNoExt];
   STATE 2564 [sym__procAttributesPp]; STATE 15242 [sym_procAttribute];
   STATE 1716 [aux_sym__declProc_repeat1]; ACTIONS 12760 [anon_sym_LBRACK];
   ACTIONS 4213 [aux_sym_ppUsesBlock_token1]; ACTIONS 3 [sym__space];
   ACTIONS 5 [sym_ppDirective]; ACTIONS 3 [sym_comment]; ACTIONS 1016 [sym_kDefault;
   sym_kNodefault]; ACTIONS 11641 [sym_kDispId]; ACTIONS 4206 [sym_kGeneric; sym_kOperator];
   ACTIONS 11643 [sym_kPublic]; ACTIONS 1016 [sym_kStatic; sym_kVirtual; sym_kAbstract;
   sym_kDynamic; sym_kOverride; sym_kOverload; sym_kReintroduce; sym_kStdcall; sym_kCdecl;
   sym_kCppdecl; sym_kPascal; sym_kRegister; sym_kMwpascal]; ACTIONS 11645 [sym_kMessage];
   ACTIONS 11647 [sym_kDeprecated]; ACTIONS 1016 [sym_kExperimental; sym_kPlatform;
   sym_kUnimplemented; sym_kCvar]; ACTIONS 11649 [sym_kExport]; ACTIONS 1016 [sym_kFar;
   sym_kNear; sym_kSafecall; sym_kAssembler; sym_kNostackframe; sym_kInterrupt; sym_kNoreturn;
   sym_kIocheck; sym_kLocal; sym_kHardfloat; sym_kSoftfloat; sym_kMs_abi_default;
   sym_kMs_abi_cdecl; sym_kSaveregisters; sym_kSysv_abi_default; sym_kSysv_abi_cdecl;
   sym_kVectorcall; sym_kVarargs; sym_kWinapi]; ACTIONS 11651 [sym_kAlias];
   ACTIONS 4206 [sym_kClass; sym_kConst; sym_kConstructor; sym_kDestructor; sym_kEnd;
   sym_kExports; sym_kFinalization; sym_kFunction; sym_kImplementation; sym_kInitialization];
   ACTIONS 1016 [sym_kInline]; ACTIONS 4206 [sym_kInterface; sym_kLabel; sym_kProcedure;
   sym_kProperty; sym_kResourcestring; sym_kThreadvar; sym_kType; sym_kUses; sym_kVar]].

(** State 1838. *)
Definition ts_parse_table_1838 : parse_row :=
  [STATE 2907 [sym__ppIf]; STATE 2561 [sym__procAttributeNoExt];
   STATE 2564 [sym__procAttributesPp]; STATE 15242 [sym_procAttribute];
   STATE 1849 [aux_sym__declProc_repeat1]; ACTIONS 12763 [anon_sym_LBRACK];
   ACTIONS 4272 [aux_sym_ppUsesBlock_token1]; ACTIONS 3 [sym__space];
   ACTIONS 5 [sym_ppDirective]; ACTIONS 3 [sym_comment]; ACTIONS 1016 [sym_kDefault;
   sym_kNodefault]; ACTIONS 11641 [sym_kDispId]; ACTIONS 4265 [sym_kGeneric; sym_kOperator];
   ACTIONS 11643 [sym_kPublic]; ACTIONS 1016 [sym_kStatic; sym_kVirtual; sym_kAbstract;
   sym_kDynamic; sym_kOverride; sym_kOverload; sym_kReintroduce; sym_kStdcall; sym_kCdecl;
   sym_kCppdecl; sym_kPascal; sym_kRegister; sym_kMwpascal]; ACTIONS 11645 [sym_kMessage];
   ACTIONS 11647 [sym_kDeprecated]; ACTIONS 1016 [sym_kExperimental; sym_kPlatform;
   sym_kUnimplemented; sym_kCvar]; ACTIONS 11649 [sym_kExport]; ACTIONS 1016 [sym_kFar;
   sym_kNear; sym_kSafecall; sym_kAssembler; sym_kNostackframe; sym_kInterrupt; sym_kNoreturn;
   sym_kIocheck; sym_kLocal; sym_kHardfloat; sym_kSoftfloat; sym_kMs_abi_default;
   sym_kMs_abi_cdecl; sym_kSaveregisters; sym_kSysv_abi_default; sym_kSysv_abi_cdecl;
   sym_kVectorcall; sym_kVarargs; sym_kWinapi]; ACTIONS 11651 [sym_kAlias];
   ACTIONS 4265 [sym_kClass; sym_kConst; sym_kConstructor; sym_kDestructor; sym_kEnd;
   sym_kExports; sym_kFinalization; sym_kFunction; sym_kImplementation; sym_kInitialization];
   ACTIONS 1016 [sym_kInline]; ACTIONS 4265 [sym_kInterface; sym_kLabel; sym_kProcedure;
   sym_kProperty; sym_kResourcestring; sym_kThreadvar; sym_kType; sym_kUses; sym_kVar]].

(** State 1839. *)
Definition ts_parse_table_1839 : parse_row :=
  [STATE 2907 [sym__ppIf]; STATE 2561 [sym__procAttributeNoExt];
   STATE 2564 [sym__procAttributesPp]; STATE 15242 [sym_procAttribute];
   STATE 1716 [aux_sym__declProc_repeat1]; ACTIONS 12766 [anon_sym_LBRACK];
   ACTIONS 4310 [aux_sym_ppUsesBlock_token1]; ACTIONS 3 [sym__space];
   ACTIONS 5 [sym_ppDirective]; ACTIONS 3 [sym_comment]; ACTIONS 1016 [sym_kDefault;
   sym_kNodefault]; ACTIONS 11641 [sym_kDispId]; ACTIONS 4303 [sym_kGeneric; sym_kOperator];
   ACTIONS 11643 [sym_kPublic]; ACTIONS 1016 [sym_kStatic; sym_kVirtual; sym_kAbstract;
   sym_kDynamic; sym_kOverride; sym_kOverload; sym_kReintroduce; sym_kStdcall; sym_kCdecl;
   sym_kCppdecl; sym_kPascal; sym_kRegister; sym_kMwpascal]; ACTIONS 11645 [sym_kMessage];
   ACTIONS 11647 [sym_kDeprecated]; ACTIONS 1016 [sym_kExperimental; sym_kPlatform;
   sym_kUnimplemented; sym_kCvar]; ACTIONS 11649 [sym_kExport]; ACTIONS 1016 [sym_kFar;
   sym_kNear; sym_kSafecall; sym_kAssembler; sym_kNostackframe; sym_kInterrupt; sym_kNoreturn;
   sym_kIocheck; sym_kLocal; sym_kHardfloat; sym_kSoftfloat; sym_kMs_abi_default;
   sym_kMs_abi_cdecl; sym_kSaveregisters; sym_kSysv_abi_default; sym_kSysv_abi_cdecl;
   sym_kVectorcall; sym_kVarargs; sym_kWinapi]; ACTIONS 11651 [sym_kAlias];
   ACTIONS 4303 [sym_kClass; sym_kConst; sym_kConstructor; sym_kDestructor; sym_kEnd;
   sym_kExports; sym_kFinalization; sym_kFunction; sym_kImplementation; sym_kInitialization];
   ACTIONS 1016 [sym_kInline]; ACTIONS 4303 [sym_kInterface; sym_kLabel; sym_kProcedure;
   sym_kProperty; sym_kResourcestring; sym_kThreadvar; sym_kType; sym_kUses; sym_kVar]].

(** State 1840. *)
Definition ts_parse_table_1840 : parse_row :=
  [STATE 2907 [sym__ppIf]; STATE 2561 [sym__procAttributeNoExt];
   STATE 2564 [sym__procAttributesPp]; STATE 15242 [sym_procAttribute];
   STATE 1852 [aux_sym__declProc_repeat1]; ACTIONS 12769 [anon_sym_LBRACK];
   ACTIONS 4796 [aux_sym_ppUsesBlock_token1]; ACTIONS 3 [sym__space];
   ACTIONS 5 [sym_ppDirective]; ACTIONS 3 [sym_comment]; ACTIONS 1016 [sym_kDefault;
   sym_kNodefault]; ACTIONS 11641 [sym_kDispId]; ACTIONS 4789 [sym_kGeneric; sym_kOperator];
   ACTIONS 11643 [sym_kPublic]; ACTIONS 1016 [sym_kStatic; sym_kVirtual; sym_kAbstract;
   sym_kDynamic; sym_kOverride; sym_kOverload; sym_kReintroduce; sym_kStdcall; sym_kCdecl;
   sym_kCppdecl; sym_kPascal; sym_kRegister; sym_kMwpascal]; ACTIONS 11645 [sym_kMessage];
   ACTIONS 11647 [sym_kDeprecated]; ACTIONS 1016 [sym_kExperimental; sym_kPlatform;
   sym_kUnimplemented; sym_kCvar]; ACTIONS 11649 [sym_kExport]; ACTIONS 1016 [sym_kFar;
   sym_kNear; sym_kSafecall; sym_kAssembler; sym_kNostackframe; sym_kInterrupt; sym_kNoreturn;
   sym_kIocheck; sym_kLocal; sym_kHardfloat; sym_kSoftfloat; sym_kMs_abi_default;
   sym_kMs_abi_cdecl; sym_kSaveregisters; sym_kSysv_abi_default; sym_kSysv_abi_cdecl;
   sym_kVectorcall; sym_kVarargs; sym_kWinapi]; ACTIONS 11651 [sym_kAlias];
   ACTIONS 4789 [sym_kClass; sym_kConst; sym_kConstructor; sym_kDestructor; sym_kEnd;
   sym_kExports; sym_kFinalization; sym_kFunction; sym_kImplementation; sym_kInitialization];
   ACTIONS 1016 [sym_kInline]; ACTIONS 4789 [sym_kInterface; sym_kLabel; sym_kProcedure;
   sym_kProperty; sym_kResourcestring; sym_kThreadvar; sym_kType; sym_kUses; sym_kVar]].

(** State 1841. *)
Definition ts_parse_table_1841 : parse_row :=
  [STATE 2907 [sym__ppIf]; STATE 2561 [sym__procAttributeNoExt];
   STATE 2564 [sym__procAttributesPp]; STATE 15242 [sym_procAttribute];
   STATE 1853 [aux_sym__declProc_repeat1]; ACTIONS 12772 [anon_sym_LBRACK];
   ACTIONS 5004 [aux_sym_ppUsesBlock_token1]; ACTIONS 3 [sym__space];
   ACTIONS 5 [sym_ppDirective]; ACTIONS 3 [sym_comment]; ACTIONS 1016 [sym_kDefault;
   sym_kNodefault]; ACTIONS 11641 [sym_kDispId]; ACTIONS 4997 [sym_kGeneric; sym_kOperator];
   ACTIONS 11643 [sym_kPublic]; ACTIONS 1016 [sym_kStatic; sym_kVirtual; sym_kAbstract;
   sym_kDynamic; sym_kOverride; sym_kOverload; sym_kReintroduce; sym_kStdcall; sym_kCdecl;
   sym_kCppdecl; sym_kPascal; sym_kRegister; sym_kMwpascal]; ACTIONS 11645 [sym_kMessage];
   ACTIONS 11647 [sym_kDeprecated]; ACTIONS 1016 [sym_kExperimental; sym_kPlatform;
   sym_kUnimplemented; sym_kCvar]; ACTIONS 11649 [sym_kExport]; ACTIONS 1016 [sym_kFar;
   sym_kNear; sym_kSafecall; sym_kAssembler; sym_kNostackframe; sym_kInterrupt; sym_kNoreturn;
   sym_kIocheck; sym_kLocal; sym_kHardfloat; sym_kSoftfloat; sym_kMs_abi_default;
   sym_kMs_abi_cdecl; sym_kSaveregisters; sym_kSysv_abi_default; sym_kSysv_abi_cdecl;
   sym_kVectorcall; sym_kVarargs; sym_kWinapi]; ACTIONS 11651 [sym_kAlias];
   ACTIONS 4997 [sym_kClass; sym_kConst; sym_kConstructor; sym_kDestructor; sym_kEnd;
   sym_kExports; sym_kFinalization; sym_kFunction; sym_kImplementation; sym_kInitialization];
   ACTIONS 1016 [sym_kInline]; ACTIONS 4997 [sym_kInterface; sym_kLabel; sym_kProcedure;
   sym_kProperty; sym_kResourcestring; sym_kThreadvar; sym_kType; sym_kUses; sym_kVar]].

(** State 1842. *)
Definition ts_parse_table_1842 : parse_row :=
  [STATE 2907 [sym__ppIf]; STATE 2561 [sym__procAttributeNoExt];
   STATE 2564 [sym__procAttributesPp]; STATE 15242 [sym_procAttribute];
   STATE 1716 [aux_sym__declProc_repeat1]; ACTIONS 12775 [anon_sym_LBRACK];
   ACTIONS 5035 [aux_sym_ppUsesBlock_token1]; ACTIONS 3 [sym__space];
   ACTIONS 5 [sym_ppDirective]; ACTIONS 3 [sym_comment]; ACTIONS 1016 [sym_kDefault;
   sym_kNodefault]; ACTIONS 11641 [sym_kDispId]; ACTIONS 5028 [sym_kGeneric; sym_kOperator];
   ACTIONS 11643 [sym_kPublic]; ACTIONS 1016 [sym_kStatic; sym_kVirtual; sym_kAbstract;
   sym_kDynamic; sym_kOverride; sym_kOverload; sym_kReintroduce; sym_kStdcall; sym_kCdecl;
   sym_kCppdecl; sym_kPascal; sym_kRegister; sym_kMwpascal]; ACTIONS 11645 [sym_kMessage];
   ACTIONS 11647 [sym_kDeprecated]; ACTIONS 1016 [sym_kExperimental; sym_kPlatform;
   sym_kUnimplemented; sym_kCvar]; ACTIONS 11649 [sym_kExport]; ACTIONS 1016 [sym_kFar;
   sym_kNear; sym_kSafecall; sym_kAssembler; sym_kNostackframe; sym_kInterrupt; sym_kNoreturn;
   sym_kIocheck; sym_kLocal; sym_kHardfloat; sym_kSoftfloat; sym_kMs_abi_default;
   sym_kMs_abi_cdecl; sym_kSaveregisters; sym_kSysv_abi_default; sym_kSysv_abi_cdecl;
   sym_kVectorcall; sym_kVarargs; sym_kWinapi]; ACTIONS 11651 [sym_kAlias];
   ACTIONS 5028 [sym_kClass; sym_kConst; sym_kConstructor; sym_kDestructor; sym_kEnd;
   sym_kExports; sym_kFinalization; sym_kFunction; sym_kImplementation; sym_kInitialization];
   ACTIONS 1016 [sym_kInline]; ACTIONS 5028 [sym_kInterface; sym_kLabel; sym_kProcedure;
   sym_kProperty; sym_kResourcestring; sym_kThreadvar; sym_kType; sym_kUses; sym_kVar]].

(** State 1843. *)
Definition ts_parse_table_1843 : parse_row :=
  [STATE 2907 [sym__ppIf]; STATE 2561 [sym__procAttributeNoExt];
   STATE 2564 [sym__procAttributesPp]; STATE 15242 [sym_procAttribute];
   STATE 1856 [aux_sym__declProc_repeat1]; ACTIONS 12778 [anon_sym_LBRACK];
   ACTIONS 5082 [aux_sym_ppUsesBlock_token1]; ACTIONS 3 [sym__space];
   ACTIONS 5 [sym_ppDirective]; ACTIONS 3 [sym_comment]; ACTIONS 1016 [sym_kDefault;
   sym_kNodefault]; ACTIONS 11641 [sym_kDispId]; ACTIONS 5075 [sym_kGeneric; sym_kOperator];
   ACTIONS 11643 [sym_kPublic]; ACTIONS 1016 [sym_kStatic; sym_kVirtual; sym_kAbstract;
   sym_kDynamic; sym_kOverride; sym_kOverload; sym_kReintroduce; sym_kStdcall; sym_kCdecl;
   sym_kCppdecl; sym_kPascal; sym_kRegister; sym_kMwpascal]; ACTIONS 11645 [sym_kMessage];
   ACTIONS 11647 [sym_kDeprecated]; ACTIONS 1016 [sym_kExperimental; sym_kPlatform;
   sym_kUnimplemented; sym_kCvar]; ACTIONS 11649 [sym_kExport]; ACTIONS 1016 [sym_kFar;
   sym_kNear; sym_kSafecall; sym_kAssembler; sym_kNostackframe; sym_kInterrupt; sym_kNoreturn;
   sym_kIocheck; sym_kLocal; sym_kHardfloat; sym_kSoftfloat; sym_kMs_abi_default;
   sym_kMs_abi_cdecl; sym_kSaveregisters; sym_kSysv_abi_default; sym_kSysv_abi_cdecl;
   sym_kVectorcall; sym_kVarargs; sym_kWinapi]; ACTIONS 11651 [sym_kAlias];
   ACTIONS 5075 [sym_kClass; sym_kConst; sym_kConstructor; sym_kDestructor; sym_kEnd;
   sym_kExports; sym_kFinalization; sym_kFunction; sym_kImplementation; sym_kInitialization];
   ACTIONS 1016 [sym_kInline]; ACTIONS 5075 [sym_kInterface; sym_kLabel; sym_kProcedure;
   sym_kProperty; sym_kResourcestring; sym_kThreadvar; sym_kType; sym_kUses; sym_kVar]].

(** State 1844. *)
Definition ts_parse_table_1844 : parse_row :=
  [STATE 2907 [sym__ppIf]; STATE 2561 [sym__procAttributeNoExt];
   STATE 2564 [sym__procAttributesPp]; STATE 15242 [sym_procAttribute];
   STATE 1858 [aux_sym__declProc_repeat1]; ACTIONS 12781 [anon_sym_LBRACK];
   ACTIONS 5832 [aux_sym_ppUsesBlock_token1]; ACTIONS 3 [sym__space];
   ACTIONS 5 [sym_ppDirective]; ACTIONS 3 [sym_comment]; ACTIONS 1016 [sym_kDefault;
   sym_kNodefault]; ACTIONS 11641 [sym_kDispId]; ACTIONS 5825 [sym_kGeneric; sym_kOperator];
   ACTIONS 11643 [sym_kPublic]; ACTIONS 1016 [sym_kStatic; sym_kVirtual; sym_kAbstract;
   sym_kDynamic; sym_kOverride; sym_kOverload; sym_kReintroduce; sym_kStdcall; sym_kCdecl;
   sym_kCppdecl; sym_kPascal; sym_kRegister; sym_kMwpascal]; ACTIONS 11645 [sym_kMessage];
   ACTIONS 11647 [sym_kDeprecated]; ACTIONS 1016 [sym_kExperimental; sym_kPlatform;
   sym_kUnimplemented; sym_kCvar]; ACTIONS 11649 [sym_kExport]; ACTIONS 1016 [sym_kFar;
   sym_kNear; sym_kSafecall; sym_kAssembler; sym_kNostackframe; sym_kInterrupt; sym_kNoreturn;
   sym_kIocheck; sym_kLocal; sym_kHardfloat; sym_kSoftfloat; sym_kMs_abi_default;
   sym_kMs_abi_cdecl; sym_kSaveregisters; sym_kSysv_abi_default; sym_kSysv_abi_cdecl;
   sym_kVectorcall; sym_kVarargs; sym_kWinapi]; ACTIONS 11651 [sym_kAlias];
   ACTIONS 5825 [sym_kClass; sym_kConst; sym_kConstructor; sym_kDestructor; sym_kEnd;
   sym_kExports; sym_kFinalization; sym_kFunction; sym_kImplementation; sym_kInitialization];
   ACTIONS 1016 [sym_kInline]; ACTIONS 5825 [sym_kInterface; sym_kLabel; sym_kProcedure;
   sym_kProperty; sym_kResourcestring; sym_kThreadvar; sym_kType; sym_kUses; sym_kVar]].

(** State 1845. *)
Definition ts_parse_table_1845 : parse_row :=
  [STATE 2907 [sym__ppIf]; STATE 2561 [sym__procAttributeNoExt];
   STATE 2564 [sym__procAttributesPp]; STATE 15242 [sym_procAttribute];
   STATE 1860 [aux_sym__declProc_repeat1]; ACTIONS 12784 [anon_sym_LBRACK];
   ACTIONS 5866 [aux_sym_ppUsesBlock_token1]; ACTIONS 3 [sym__space];
   ACTIONS 5 [sym_ppDirective]; ACTIONS 3 [sym_comment]; ACTIONS 1016 [sym_kDefault;
   sym_kNodefault]; ACTIONS 11641 [sym_kDispId]; ACTIONS 5859 [sym_kGeneric; sym_kOperator];
   ACTIONS 11643 [sym_kPublic]; ACTIONS 1016 [sym_kStatic; sym_kVirtual; sym_kAbstract;
   sym_kDynamic; sym_kOverride; sym_kOverload; sym_kReintroduce; sym_kStdcall; sym_kCdecl;
   sym_kCppdecl; sym_kPascal; sym_kRegister; sym_kMwpascal]; ACTIONS 11645 [sym_kMessage];
   ACTIONS 11647 [sym_kDeprecated]; ACTIONS 1016 [sym_kExperimental; sym_kPlatform;
   sym_kUnimplemented; sym_kCvar]; ACTIONS 11649 [sym_kExport]; ACTIONS 1016 [sym_kFar;
   sym_kNear; sym_kSafecall; sym_kAssembler; sym_kNostackframe; sym_kInterrupt; sym_kNoreturn;
   sym_kIocheck; sym_kLocal; sym_kHardfloat; sym_kSoftfloat; sym_kMs_abi_default;
   sym_kMs_abi_cdecl; sym_kSaveregisters; sym_kSysv_abi_default; sym_kSysv_abi_cdecl;
   sym_kVectorcall; sym_kVarargs; sym_kWinapi]; ACTIONS 11651 [sym_kAlias];
   ACTIONS 5859 [sym_kClass; sym_kConst; sym_kConstructor; sym_kDestructor; sym_kEnd;
   sym_kExports; sym_kFinalization; sym_kFunction; sym_kImplementation; sym_kInitialization];
   ACTIONS 1016 [sym_kInline]; ACTIONS 5859 [sym_kInterface; sym_kLabel; sym_kProcedure;
   sym_kProperty; sym_kResourcestring; sym_kThreadvar; sym_kType; sym_kUses; sym_kVar]].

(** State 1846. *)
Definition ts_parse_table_1846 : parse_row :=
  [STATE 2907 [sym__ppIf]; STATE 2561 [sym__procAttributeNoExt];
   STATE 2564 [sym__procAttributesPp]; STATE 15242 [sym_procAttribute];
   STATE 1716 [aux_sym__declProc_repeat1]; ACTIONS 12787 [anon_sym_LBRACK];
   ACTIONS 6034 [aux_sym_ppUsesBlock_token1]; ACTIONS 3 [sym__space];
   ACTIONS 5 [sym_ppDirective]; ACTIONS 3 [sym_comment]; ACTIONS 1016 [sym_kDefault;
   sym_kNodefault]; ACTIONS 11641 [sym_kDispId]; ACTIONS 6027 [sym_kGeneric; sym_kOperator];
   ACTIONS 11643 [sym_kPublic]; ACTIONS 1016 [sym_kStatic; sym_kVirtual; sym_kAbstract;
   sym_kDynamic; sym_kOverride; sym_kOverload; sym_kReintroduce; sym_kStdcall; sym_kCdecl;
   sym_kCppdecl; sym_kPascal; sym_kRegister; sym_kMwpascal]; ACTIONS 11645 [sym_kMessage];
   ACTIONS 11647 [sym_kDeprecated]; ACTIONS 1016 [sym_kExperimental; sym_kPlatform;
   sym_kUnimplemented; sym_kCvar]; ACTIONS 11649 [sym_kExport]; ACTIONS 1016 [sym_kFar;
   sym_kNear; sym_kSafecall; sym_kAssembler; sym_kNostackframe; sym_kInterrupt; sym_kNoreturn;
   sym_kIocheck; sym_kLocal; sym_kHardfloat; sym_kSoftfloat; sym_kMs_abi_default;
   sym_kMs_abi_cdecl; sym_kSaveregisters; sym_kSysv_abi_default; sym_kSysv_abi_cdecl;
   sym_kVectorcall; sym_kVarargs; sym_kWinapi]; ACTIONS 11651 [sym_kAlias];
   ACTIONS 6027 [sym_kClass; sym_kConst; sym_kConstructor; sym_kDestructor; sym_kEnd;
   sym_kExports; sym_kFinalization; sym_kFunction; sym_kImplementation; sym_kInitialization];
   ACTIONS 1016 [sym_kInline]; ACTIONS 6027 [sym_kInterface; sym_kLabel; sym_kProcedure;
   sym_kProperty; sym_kResourcestring; sym_kThreadvar; sym_kType; sym_kUses; sym_kVar]].

(** State 1847. *)
Definition ts_parse_table_1847 : parse_row :=
  [STATE 2907 [sym__ppIf]; STATE 2561 [sym__procAttributeNoExt];
   STATE 2564 [sym__procAttributesPp]; STATE 15242 [sym_procAttribute];
   STATE 1716 [aux_sym__declProc_repeat1]; ACTIONS 12790 [anon_sym_LBRACK];
   ACTIONS 6433 [aux_sym_ppUsesBlock_token1]; ACTIONS 3 [sym__space];
   ACTIONS 5 [sym_ppDirective]; ACTIONS 3 [sym_comment]; ACTIONS 1016 [sym_kDefault;
   sym_kNodefault]; ACTIONS 11641 [sym_kDispId]; ACTIONS 6426 [sym_kGeneric; sym_kOperator];
   ACTIONS 11643 [sym_kPublic]; ACTIONS 1016 [sym_kStatic; sym_kVirtual; sym_kAbstract;
   sym_kDynamic; sym_kOverride; sym_kOverload; sym_kReintroduce; sym_kStdcall; sym_kCdecl;
   sym_kCppdecl; sym_kPascal; sym_kRegister; sym_kMwpascal]; ACTIONS 11645 [sym_kMessage];
   ACTIONS 11647 [sym_kDeprecated]; ACTIONS 1016 [sym_kExperimental; sym_kPlatform;
   sym_kUnimplemented; sym_kCvar]; ACTIONS 11649 [sym_kExport]; ACTIONS 1016 [sym_kFar;
   sym_kNear; sym_kSafecall; sym_kAssembler; sym_kNostackframe; sym_kInterrupt; sym_kNoreturn;
   sym_kIocheck; sym_kLocal; sym_kHardfloat; sym_kSoftfloat; sym_kMs_abi_default;
   sym_kMs_abi_cdecl; sym_kSaveregisters; sym_kSysv_abi_default; sym_kSysv_abi_cdecl;
   sym_kVectorcall; sym_kVarargs; sym_kWinapi]; ACTIONS 11651 [sym_kAlias];
   ACTIONS 6426 [sym_kClass; sym_kConst; sym_kConstructor; sym_kDestructor; sym_kEnd;
   sym_kExports; sym_kFinalization; sym_kFunction; sym_kImplementation; sym_kInitialization];
   ACTIONS 1016 [sym_kInline]; ACTIONS 6426 [sym_kInterface; sym_kLabel; sym_kProcedure;
   sym_kProperty; sym_kResourcestring; sym_kThreadvar; sym_kType; sym_kUses; sym_kVar]].

(** State 1848. *)
Definition ts_parse_table_1848 : parse_row :=
  [STATE 2907 [sym__ppIf]; STATE 2561 [sym__procAttributeNoExt];
   STATE 2564 [sym__procAttributesPp]; STATE 15242 [sym_procAttribute];
   STATE 1862 [aux_sym__declProc_repeat1]; ACTIONS 12793 [anon_sym_LBRACK];
   ACTIONS 7007 [aux_sym_ppUsesBlock_token1]; ACTIONS 3 [sym__space];
   ACTIONS 5 [sym_ppDirective]; ACTIONS 3 [sym_comment]; ACTIONS 1016 [sym_kDefault;
   sym_kNodefault]; ACTIONS 11641 [sym_kDispId]; ACTIONS 7000 [sym_kGeneric; sym_kOperator];
   ACTIONS 11643 [sym_kPublic]; ACTIONS 1016 [sym_kStatic; sym_kVirtual; sym_kAbstract;
   sym_kDynamic; sym_kOverride; sym_kOverload; sym_kReintroduce; sym_kStdcall; sym_kCdecl;
   sym_kCppdecl; sym_kPascal; sym_kRegister; sym_kMwpascal]; ACTIONS 11645 [sym_kMessage];
   ACTIONS 11647 [sym_kDeprecated]; ACTIONS 1016 [sym_kExperimental; sym_kPlatform;
   sym_kUnimplemented; sym_kCvar]; ACTIONS 11649 [sym_kExport]; ACTIONS 1016 [sym_kFar;
   sym_kNear; sym_kSafecall; sym_kAssembler; sym_kNostackframe; sym_kInterrupt; sym_kNoreturn;
   sym_kIocheck; sym_kLocal; sym_kHardfloat; sym_kSoftfloat; sym_kMs_abi_default;
   sym_kMs_abi_cdecl; sym_kSaveregisters; sym_kSysv_abi_default; sym_kSysv_abi_cdecl;
   sym_kVectorcall; sym_kVarargs; sym_kWinapi]; ACTIONS 11651 [sym_kAlias];
   ACTIONS 7000 [sym_kClass; sym_kConst; sym_kConstructor; sym_kDestructor; sym_kEnd;
   sym_kExports; sym_kFinalization; sym_kFunction; sym_kImplementation; sym_kInitialization];
   ACTIONS 1016 [sym_kInline]; ACTIONS 7000 [sym_kInterface; sym_kLabel; sym_kProcedure;
   sym_kProperty; sym_kResourcestring; sym_kThreadvar; sym_kType; sym_kUses; sym_kVar]].

(** State 1849. *)
Definition ts_parse_table_1849 : parse_row :=
  [STATE 2907 [sym__ppIf]; STATE 2561 [sym__procAttributeNoExt];
   STATE 2564 [sym__procAttributesPp]; STATE 15242 [sym_procAttribute];
   STATE 1716 [aux_sym__declProc_repeat1]; ACTIONS 12796 [anon_sym_LBRACK];
   ACTIONS 3859 [aux_sym_ppUsesBlock_token1]; ACTIONS 3 [sym__space];
   ACTIONS 5 [sym_ppDirective]; ACTIONS 3 [sym_comment]; ACTIONS 1016 [sym_kDefault;
   sym_kNodefault]; ACTIONS 11641 [sym_kDispId]; ACTIONS 3852 [sym_kGeneric; sym_kOperator];
   ACTIONS 11643 [sym_kPublic]; ACTIONS 1016 [sym_kStatic; sym_kVirtual; sym_kAbstract;
   sym_kDynamic; sym_kOverride; sym_kOverload; sym_kReintroduce; sym_kStdcall; sym_kCdecl;
   sym_kCppdecl; sym_kPascal; sym_kRegister; sym_kMwpascal]; ACTIONS 11645 [sym_kMessage];
   ACTIONS 11647 [sym_kDeprecated]; ACTIONS 1016 [sym_kExperimental; sym_kPlatform;
   sym_kUnimplemented; sym_kCvar]; ACTIONS 11649 [sym_kExport]; ACTIONS 1016 [sym_kFar;
   sym_kNear; sym_kSafecall; sym_kAssembler; sym_kNostackframe; sym_kInterrupt; sym_kNoreturn;
   sym_kIocheck; sym_kLocal; sym_kHardfloat; sym_kSoftfloat; sym_kMs_abi_default;
   sym_kMs_abi_cdecl; sym_kSaveregisters; sym_kSysv_abi_default; sym_kSysv_abi_cdecl;
   sym_kVectorcall; sym_kVarargs; sym_kWinapi]; ACTIONS 11651 [sym_kAlias];
   ACTIONS 3852 [sym_kClass; sym_kConst; sym_kConstructor; sym_kDestructor; sym_kEnd;
   sym_kExports; sym_kFinalization; sym_kFunction; sym_kImplementation; sym_kInitialization];
   ACTIONS 1016 [sym_kInline]; ACTIONS 3852 [sym_kInterface; sym_kLabel; sym_kProcedure;
   sym_kProperty; sym_kResourcestring; sym_kThreadvar; sym_kType; sym_kUses; sym_kVar]].

(** State 1850. *)
Definition ts_parse_table_1850 : parse_row :=
  [STATE 2907 [sym__ppIf]; STATE 2561 [sym__procAttributeNoExt];
   STATE 2564 [sym__procAttributesPp]; STATE 15242 [sym_procAttribute];
   STATE 1864 [aux_sym__declProc_repeat1]; ACTIONS 12799 [anon_sym_LBRACK];
   ACTIONS 3918 [aux_sym_ppUsesBlock_token1]; ACTIONS 3 [sym__space];
   ACTIONS 5 [sym_ppDirective]; ACTIONS 3 [sym_comment]; ACTIONS 1016 [sym_kDefault;
   sym_kNodefault]; ACTIONS 11641 [sym_kDispId]; ACTIONS 3911 [sym_kGeneric; sym_kOperator];
   ACTIONS 11643 [sym_kPublic]; ACTIONS 1016 [sym_kStatic; sym_kVirtual; sym_kAbstract;
   sym_kDynamic; sym_kOverride; sym_kOverload; sym_kReintroduce; sym_kStdcall; sym_kCdecl;
   sym_kCppdecl; sym_kPascal; sym_kRegister; sym_kMwpascal]; ACTIONS 11645 [sym_kMessage];
   ACTIONS 11647 [sym_kDeprecated]; ACTIONS 1016 [sym_kExperimental; sym_kPlatform;
   sym_kUnimplemented; sym_kCvar]; ACTIONS 11649 [sym_kExport]; ACTIONS 1016 [sym_kFar;
   sym_kNear; sym_kSafecall; sym_kAssembler; sym_kNostackframe; sym_kInterrupt; sym_kNoreturn;
   sym_kIocheck; sym_kLocal; sym_kHardfloat; sym_kSoftfloat; sym_kMs_abi_default;
   sym_kMs_abi_cdecl; sym_kSaveregisters; sym_kSysv_abi_default; sym_kSysv_abi_cdecl;
   sym_kVectorcall; sym_kVarargs; sym_kWinapi]; ACTIONS 11651 [sym_kAlias];
   ACTIONS 3911 [sym_kClass; sym_kConst; sym_kConstructor; sym_kDestructor; sym_kEnd;
   sym_kExports; sym_kFinalization; sym_kFunction; sym_kImplementation; sym_kInitialization];
   ACTIONS 1016 [sym_kInline]; ACTIONS 3911 [sym_kInterface; sym_kLabel; sym_kProcedure;
   sym_kProperty; sym_kResourcestring; sym_kThreadvar; sym_kType; sym_kUses; sym_kVar]].

(** State 1851. *)
Definition ts_parse_table_1851 : parse_row :=
  [STATE 2907 [sym__ppIf]; STATE 2561 [sym__procAttributeNoExt];
   STATE 2564 [sym__procAttributesPp]; STATE 15242 [sym_procAttribute];
   STATE 1865 [aux_sym__declProc_repeat1]; ACTIONS 12802 [anon_sym_LBRACK];
   ACTIONS 4120 [aux_sym_ppUsesBlock_token1]; ACTIONS 3 [sym__space];
   ACTIONS 5 [sym_ppDirective]; ACTIONS 3 [sym_comment]; ACTIONS 1016 [sym_kDefault;
   sym_kNodefault]; ACTIONS 11641 [sym_kDispId]; ACTIONS 4113 [sym_kGeneric; sym_kOperator];
   ACTIONS 11643 [sym_kPublic]; ACTIONS 1016 [sym_kStatic; sym_kVirtual; sym_kAbstract;
   sym_kDynamic; sym_kOverride; sym_kOverload; sym_kReintroduce; sym_kStdcall; sym_kCdecl;
   sym_kCppdecl; sym_kPascal; sym_kRegister; sym_kMwpascal]; ACTIONS 11645 [sym_kMessage];
   ACTIONS 11647 [sym_kDeprecated]; ACTIONS 1016 [sym_kExperimental; sym_kPlatform;
   sym_kUnimplemented; sym_kCvar]; ACTIONS 11649 [sym_kExport]; ACTIONS 1016 [sym_kFar;
   sym_kNear; sym_kSafecall; sym_kAssembler; sym_kNostackframe; sym_kInterrupt; sym_kNoreturn;
   sym_kIocheck; sym_kLocal; sym_kHardfloat; sym_kSoftfloat; sym_kMs_abi_default;
   sym_kMs_abi_cdecl; sym_kSaveregisters; sym_kSysv_abi_default; sym_kSysv_abi_cdecl;
   sym_kVectorcall; sym_kVarargs; sym_kWinapi]; ACTIONS 11651 [sym_kAlias];
   ACTIONS 4113 [sym_kClass; sym_kConst; sym_kConstructor; sym_kDestructor; sym_kEnd;
   sym_kExports; sym_kFinalization; sym_kFunction; sym_kImplementation; sym_kInitialization];
   ACTIONS 1016 [sym_kInline]; ACTIONS 4113 [sym_kInterface; sym_kLabel; sym_kProcedure;
   sym_kProperty; sym_kResourcestring; sym_kThreadvar; sym_kType; sym_kUses; sym_kVar]].

(** State 1852. *)
Definition ts_parse_table_1852 : parse_row :=
  [STATE 2907 [sym__ppIf]; STATE 2561 [sym__procAttributeNoExt];
   STATE 2564 [sym__procAttributesPp]; STATE 15242 [sym_procAttribute];
   STATE 1716 [aux_sym__declProc_repeat1]; ACTIONS 12805 [anon_sym_LBRACK];
   ACTIONS 4154 [aux_sym_ppUsesBlock_token1]; ACTIONS 3 [sym__space];
   ACTIONS 5 [sym_ppDirective]; ACTIONS 3 [sym_comment]; ACTIONS 1016 [sym_kDefault;
   sym_kNodefault]; ACTIONS 11641 [sym_kDispId]; ACTIONS 4147 [sym_kGeneric; sym_kOperator];
   ACTIONS 11643 [sym_kPublic]; ACTIONS 1016 [sym_kStatic; sym_kVirtual; sym_kAbstract;
   sym_kDynamic; sym_kOverride; sym_kOverload; sym_kReintroduce; sym_kStdcall; sym_kCdecl;
   sym_kCppdecl; sym_kPascal; sym_kRegister; sym_kMwpascal]; ACTIONS 11645 [sym_kMessage];
   ACTIONS 11647 [sym_kDeprecated]; ACTIONS 1016 [sym_kExperimental; sym_kPlatform;
   sym_kUnimplemented; sym_kCvar]; ACTIONS 11649 [sym_kExport]; ACTIONS 1016 [sym_kFar;
   sym_kNear; sym_kSafecall; sym_kAssembler; sym_kNostackframe; sym_kInterrupt; sym_kNoreturn;
   sym_kIocheck; sym_kLocal; sym_kHardfloat; sym_kSoftfloat; sym_kMs_abi_default;
   sym_kMs_abi_cdecl; sym_kSaveregisters; sym_kSysv_abi_default; sym_kSysv_abi_cdecl;
   sym_kVectorcall; sym_kVarargs; sym_kWinapi]; ACTIONS 11651 [sym_kAlias];
   ACTIONS 4147 [sym_kClass; sym_kConst; sym_kConstructor; sym_kDestructor; sym_kEnd;
   sym_kExports; sym_kFinalization; sym_kFunction; sym_kImplementation; sym_kInitialization];
   ACTIONS 1016 [sym_kInline]; ACTIONS 4147 [sym_kInterface; sym_kLabel; sym_kProcedure;
   sym_kProperty; sym_kResourcestring; sym_kThreadvar; sym_kType; sym_kUses; sym_kVar]].

(** State 1853. *)
Definition ts_parse_table_1853 : parse_row :=
  [STATE 2907 [sym__ppIf]; STATE 2561 [sym__procAttributeNoExt];
   STATE 2564 [sym__procAttributesPp]; STATE 15242 [sym_procAttribute];
   STATE 1716 [aux_sym__declProc_repeat1]; ACTIONS 12808 [anon_sym_LBRACK];
   ACTIONS 4344 [aux_sym_ppUsesBlock_token1]; ACTIONS 3 [sym__space];
   ACTIONS 5 [sym_ppDirective]; ACTIONS 3 [sym_comment]; ACTIONS 1016 [sym_kDefault;
   sym_kNodefault]; ACTIONS 11641 [sym_kDispId]; ACTIONS 4337 [sym_kGeneric; sym_kOperator];
   ACTIONS 11643 [sym_kPublic]; ACTIONS 1016 [sym_kStatic; sym_kVirtual; sym_kAbstract;
   sym_kDynamic; sym_kOverride; sym_kOverload; sym_kReintroduce; sym_kStdcall; sym_kCdecl;
   sym_kCppdecl; sym_kPascal; sym_kRegister; sym_kMwpascal]; ACTIONS 11645 [sym_kMessage];
   ACTIONS 11647 [sym_kDeprecated]; ACTIONS 1016 [sym_kExperimental; sym_kPlatform;
   sym_kUnimplemented; sym_kCvar]; ACTIONS 11649 [sym_kExport]; ACTIONS 1016 [sym_kFar;
   sym_kNear; sym_kSafecall; sym_kAssembler; sym_kNostackframe; sym_kInterrupt; sym_kNoreturn;
   sym_kIocheck; sym_kLocal; sym_kHardfloat; sym_kSoftfloat; sym_kMs_abi_default;
   sym_kMs_abi_cdecl; sym_kSaveregisters; sym_kSysv_abi_default; sym_kSysv_abi_cdecl;
   sym_kVectorcall; sym_kVarargs; sym_kWinapi]; ACTIONS 11651 [sym_kAlias];
   ACTIONS 4337 [sym_kClass; sym_kConst; sym_kConstructor; sym_kDestructor; sym_kEnd;
   sym_kExports; sym_kFinalization; sym_kFunction; sym_kImplementation; sym_kInitialization];
   ACTIONS 1016 [sym_kInline]; ACTIONS 4337 [sym_kInterface; sym_kLabel; sym_kProcedure;
   sym_kProperty; sym_kResourcestring; sym_kThreadvar; sym_kType; sym_kUses; sym_kVar]].

(** State 1854. *)
Definition ts_parse_table_1854 : parse_row :=
  [STATE 2907 [sym__ppIf]; STATE 2561 [sym__procAttributeNoExt];
   STATE 2564 [sym__procAttributesPp]; STATE 15242 [sym_procAttribute];
   STATE 1868 [aux_sym__declProc_repeat1]; ACTIONS 12811 [anon_sym_LBRACK];
   ACTIONS 4413 [aux_sym_ppUsesBlock_token1]; ACTIONS 3 [sym__space];
   ACTIONS 5 [sym_ppDirective]; ACTIONS 3 [sym_comment]; ACTIONS 1016 [sym_kDefault;
   sym_kNodefault]; ACTIONS 11641 [sym_kDispId]; ACTIONS 4406 [sym_kGeneric; sym_kOperator];
   ACTIONS 11643 [sym_kPublic]; ACTIONS 1016 [sym_kStatic; sym_kVirtual; sym_kAbstract;
   sym_kDynamic; sym_kOverride; sym_kOverload; sym_kReintroduce; sym_kStdcall; sym_kCdecl;
   sym_kCppdecl; sym_kPascal; sym_kRegister; sym_kMwpascal]; ACTIONS 11645 [sym_kMessage];
   ACTIONS 11647 [sym_kDeprecated]; ACTIONS 1016 [sym_kExperimental; sym_kPlatform;
   sym_kUnimplemented; sym_kCvar]; ACTIONS 11649 [sym_kExport]; ACTIONS 1016 [sym_kFar;
   sym_kNear; sym_kSafecall; sym_kAssembler; sym_kNostackframe; sym_kInterrupt; sym_kNoreturn;
   sym_kIocheck; sym_kLocal; sym_kHardfloat; sym_kSoftfloat; sym_kMs_abi_default;
   sym_kMs_abi_cdecl; sym_kSaveregisters; sym_kSysv_abi_default; sym_kSysv_abi_cdecl;
   sym_kVectorcall; sym_kVarargs; sym_kWinapi]; ACTIONS 11651 [sym_kAlias];
   ACTIONS 4406 [sym_kClass; sym_kConst; sym_kConstructor; sym_kDestructor; sym_kEnd;
   sym_kExports; sym_kFinalization; sym_kFunction; sym_kImplementation; sym_kInitialization];
   ACTIONS 1016 [sym_kInline]; ACTIONS 4406 [sym_kInterface; sym_kLabel; sym_kProcedure;
   sym_kProperty; sym_kResourcestring; sym_kThreadvar; sym_kType; sym_kUses; sym_kVar]].

(** State 1855. *)
Definition ts_parse_table_1855 : parse_row :=
  [STATE 2907 [sym__ppIf]; STATE 2561 [sym__procAttributeNoExt];
   STATE 2564 [sym__procAttributesPp]; STATE 15242 [sym_procAttribute];
   STATE 1869 [aux_sym__declProc_repeat1]; ACTIONS 12814 [anon_sym_LBRACK];
   ACTIONS 4709 [aux_sym_ppUsesBlock_token1]; ACTIONS 3 [sym__space];
   ACTIONS 5 [sym_ppDirective]; ACTIONS 3 [sym_comment]; ACTIONS 1016 [sym_kDefault;
   sym_kNodefault]; ACTIONS 11641 [sym_kDispId]; ACTIONS 4702 [sym_kGeneric; sym_kOperator];
   ACTIONS 11643 [sym_kPublic]; ACTIONS 1016 [sym_kStatic; sym_kVirtual; sym_kAbstract;
   sym_kDynamic; sym_kOverride; sym_kOverload; sym_kReintroduce; sym_kStdcall; sym_kCdecl;
   sym_kCppdecl; sym_kPascal; sym_kRegister; sym_kMwpascal]; ACTIONS 11645 [sym_kMessage];
   ACTIONS 11647 [sym_kDeprecated]; ACTIONS 1016 [sym_kExperimental; sym_kPlatform;
   sym_kUnimplemented; sym_kCvar]; ACTIONS 11649 [sym_kExport]; ACTIONS 1016 [sym_kFar;
   sym_kNear; sym_kSafecall; sym_kAssembler; sym_kNostackframe; sym_kInterrupt; sym_kNoreturn;
   sym_kIocheck; sym_kLocal; sym_kHardfloat; sym_kSoftfloat; sym_kMs_abi_default;
   sym_kMs_abi_cdecl; sym_kSaveregisters; sym_kSysv_abi_default; sym_kSysv_abi_cdecl;
   sym_kVectorcall; sym_kVarargs; sym_kWinapi]; ACTIONS 11651 [sym_kAlias];
   ACTIONS 4702 [sym_kClass; sym_kConst; sym_kConstructor; sym_kDestructor; sym_kEnd;
   sym_kExports; sym_kFinalization; sym_kFunction; sym_kImplementation; sym_kInitialization];
   ACTIONS 1016 [sym_kInline]; ACTIONS 4702 [sym_kInterface; sym_kLabel; sym_kProcedure;
   sym_kProperty; sym_kResourcestring; sym_kThreadvar; sym_kType; sym_kUses; sym_kVar]].

(** State 1856. *)
Definition ts_parse_table_1856 : parse_row :=
  [STATE 2907 [sym__ppIf]; STATE 2561 [sym__procAttributeNoExt];
   STATE 2564 [sym__procAttributesPp]; STATE 15242 [sym_procAttribute];
   STATE 1716 [aux_sym__declProc_repeat1]; ACTIONS 12817 [anon_sym_LBRACK];
   ACTIONS 4827 [aux_sym_ppUsesBlock_token1]; ACTIONS 3 [sym__space];
   ACTIONS 5 [sym_ppDirective]; ACTIONS 3 [sym_comment]; ACTIONS 1016 [sym_kDefault;
   sym_kNodefault]; ACTIONS 11641 [sym_kDispId]; ACTIONS 4820 [sym_kGeneric; sym_kOperator];
   ACTIONS 11643 [sym_kPublic]; ACTIONS 1016 [sym_kStatic; sym_kVirtual; sym_kAbstract;
   sym_kDynamic; sym_kOverride; sym_kOverload; sym_kReintroduce; sym_kStdcall; sym_kCdecl;
   sym_kCppdecl; sym_kPascal; sym_kRegister; sym_kMwpascal]; ACTIONS 11645 [sym_kMessage];
   ACTIONS 11647 [sym_kDeprecated]; ACTIONS 1016 [sym_kExperimental; sym_kPlatform;
   sym_kUnimplemented; sym_kCvar]; ACTIONS 11649 [sym_kExport]; ACTIONS 1016 [sym_kFar;
   sym_kNear; sym_kSafecall; sym_kAssembler; sym_kNostackframe; sym_kInterrupt; sym_kNoreturn;
   sym_kIocheck; sym_kLocal; sym_kHardfloat; sym_kSoftfloat; sym_kMs_abi_default;
   sym_kMs_abi_cdecl; sym_kSaveregisters; sym_kSysv_abi_default; sym_kSysv_abi_cdecl;
   sym_kVectorcall; sym_kVarargs; sym_kWinapi]; ACTIONS 11651 [sym_kAlias];
   ACTIONS 4820 [sym_kClass; sym_kConst; sym_kConstructor; sym_kDestructor; sym_kEnd;
   sym_kExports; sym_kFinalization; sym_kFunction; sym_kImplementation; sym_kInitialization];
   ACTIONS 1016 [sym_kInline]; ACTIONS 4820 [sym_kInterface; sym_kLabel; sym_kProcedure;
   sym_kProperty; sym_kResourcestring; sym_kThreadvar; sym_kType; sym_kUses; sym_kVar]].

(** State 1857. *)
Definition ts_parse_table_1857 : parse_row :=
  [STATE 2907 [sym__ppIf]; STATE 2561 [sym__procAttributeNoExt];
   STATE 2564 [sym__procAttributesPp]; STATE 15242 [sym_procAttribute];
   STATE 1871 [aux_sym__declProc_repeat1]; ACTIONS 12820 [anon_sym_LBRACK];
   ACTIONS 5197 [aux_sym_ppUsesBlock_token1]; ACTIONS 3 [sym__space];
   ACTIONS 5 [sym_ppDirective]; ACTIONS 3 [sym_comment]; ACTIONS 1016 [sym_kDefault;
   sym_kNodefault]; ACTIONS 11641 [sym_kDispId]; ACTIONS 5190 [sym_kGeneric; sym_kOperator];
   ACTIONS 11643 [sym_kPublic]; ACTIONS 1016 [sym_kStatic; sym_kVirtual; sym_kAbstract;
   sym_kDynamic; sym_kOverride; sym_kOverload; sym_kReintroduce; sym_kStdcall; sym_kCdecl;
   sym_kCppdecl; sym_kPascal; sym_kRegister; sym_kMwpascal]; ACTIONS 11645 [sym_kMessage];
   ACTIONS 11647 [sym_kDeprecated]; ACTIONS 1016 [sym_kExperimental; sym_kPlatform;
   sym_kUnimplemented; sym_kCvar]; ACTIONS 11649 [sym_kExport]; ACTIONS 1016 [sym_kFar;
   sym_kNear; sym_kSafecall; sym_kAssembler; sym_kNostackframe; sym_kInterrupt; sym_kNoreturn;
   sym_kIocheck; sym_kLocal; sym_kHardfloat; sym_kSoftfloat; sym_kMs_abi_default;
   sym_kMs_abi_cdecl; sym_kSaveregisters; sym_kSysv_abi_default; sym_kSysv_abi_cdecl;
   sym_kVectorcall; sym_kVarargs; sym_kWinapi]; ACTIONS 11651 [sym_kAlias];
   ACTIONS 5190 [sym_kClass; sym_kConst; sym_kConstructor; sym_kDestructor; sym_kEnd;
   sym_kExports; sym_kFinalization; sym_kFunction; sym_kImplementation; sym_kInitialization];
   ACTIONS 1016 [sym_kInline]; ACTIONS 5190 [sym_kInterface; sym_kLabel; sym_kProcedure;
   sym_kProperty; sym_kResourcestring; sym_kThreadvar; sym_kType; sym_kUses; sym_kVar]].

(** State 1858. *)
Definition ts_parse_table_1858 : parse_row :=
  [STATE 2907 [sym__ppIf]; STATE 2561 [sym__procAttributeNoExt];
   STATE 2564 [sym__procAttributesPp]; STATE 15242 [sym_procAttribute];
   STATE 1716 [aux_sym__declProc_repeat1]; ACTIONS 12823 [anon_sym_LBRACK];
   ACTIONS 5284 [aux_sym_ppUsesBlock_token1]; ACTIONS 3 [sym__space];
   ACTIONS 5 [sym_ppDirective]; ACTIONS 3 [sym_comment]; ACTIONS 1016 [sym_kDefault;
   sym_kNodefault]; ACTIONS 11641 [sym_kDispId]; ACTIONS 5277 [sym_kGeneric; sym_kOperator];
   ACTIONS 11643 [sym_kPublic]; ACTIONS 1016 [sym_kStatic; sym_kVirtual; sym_kAbstract;
   sym_kDynamic; sym_kOverride; sym_kOverload; sym_kReintroduce; sym_kStdcall; sym_kCdecl;
   sym_kCppdecl; sym_kPascal; sym_kRegister; sym_kMwpascal]; ACTIONS 11645 [sym_kMessage];
   ACTIONS 11647 [sym_kDeprecated]; ACTIONS 1016 [sym_kExperimental; sym_kPlatform;
   sym_kUnimplemented; sym_kCvar]; ACTIONS 11649 [sym_kExport]; ACTIONS 1016 [sym_kFar;
   sym_kNear; sym_kSafecall; sym_kAssembler; sym_kNostackframe; sym_kInterrupt; sym_kNoreturn;
   sym_kIocheck; sym_kLocal; sym_kHardfloat; sym_kSoftfloat; sym_kMs_abi_default;
   sym_kMs_abi_cdecl; sym_kSaveregisters; sym_kSysv_abi_default; sym_kSysv_abi_cdecl;
   sym_kVectorcall; sym_kVarargs; sym_kWinapi]; ACTIONS 11651 [sym_kAlias];
   ACTIONS 5277 [sym_kClass; sym_kConst; sym_kConstructor; sym_kDestructor; sym_kEnd;
   sym_kExports; sym_kFinalization; sym_kFunction; sym_kImplementation; sym_kInitialization];
   ACTIONS 1016 [sym_kInline]; ACTIONS 5277 [sym_kInterface; sym_kLabel; sym_kProcedure;
   sym_kProperty; sym_kResourcestring; sym_kThreadvar; sym_kType; sym_kUses; sym_kVar]].

Definition ts_parse_table_part9 : list parse_row :=
  [
   ts_parse_table_1572; ts_parse_table_1573; ts_parse_table_1574; ts_parse_table_1575;
   ts_parse_table_1576; ts_parse_table_1577; ts_parse_table_1578; ts_parse_table_1579;
   ts_parse_table_1580; ts_parse_table_1581; ts_parse_table_1582; ts_parse_table_1583;
   ts_parse_table_1584; ts_parse_table_1585; ts_parse_table_1586; ts_parse_table_1587;
   ts_parse_table_1588; ts_parse_table_1589; ts_parse_table_1590; ts_parse_table_1591;
   ts_parse_table_1592; ts_parse_table_1593; ts_parse_table_1594; ts_parse_table_1595;
   ts_parse_table_1596; ts_parse_table_1597; ts_parse_table_1598; ts_parse_table_1599;
   ts_parse_table_1600; ts_parse_table_1601; ts_parse_table_1602; ts_parse_table_1603;
   ts_parse_table_1604; ts_parse_table_1605; ts_parse_table_1606; ts_parse_table_1607;
   ts_parse_table_1608; ts_parse_table_1609; ts_parse_table_1610; ts_parse_table_1611;
   ts_parse_table_1612; ts_parse_table_1613; ts_parse_table_1614; ts_parse_table_1615;
   ts_parse_table_1616; ts_parse_table_1617; ts_parse_table_1618; ts_parse_table_1619;
   ts_parse_table_1620; ts_parse_table_1621; ts_parse_table_1622; ts_parse_table_1623;
   ts_parse_table_1624; ts_parse_table_1625; ts_parse_table_1626; ts_parse_table_1627;
   ts_parse_table_1628; ts_parse_table_1629; ts_parse_table_1630; ts_parse_table_1631;
   ts_parse_table_1632; ts_parse_table_1633; ts_parse_table_1634; ts_parse_table_1635;
   ts_parse_table_1636; ts_parse_table_1637; ts_parse_table_1638; ts_parse_table_1639;
   ts_parse_table_1640; ts_parse_table_1641; ts_parse_table_1642; ts_parse_table_1643;
   ts_parse_table_1644; ts_parse_table_1645; ts_parse_table_1646; ts_parse_table_1647;
   ts_parse_table_1648; ts_parse_table_1649; ts_parse_table_1650; ts_parse_table_1651;
   ts_parse_table_1652; ts_parse_table_1653; ts_parse_table_1654; ts_parse_table_1655;
   ts_parse_table_1656; ts_parse_table_1657; ts_parse_table_1658; ts_parse_table_1659;
   ts_parse_table_1660; ts_parse_table_1661; ts_parse_table_1662; ts_parse_table_1663;
   ts_parse_table_1664; ts_parse_table_1665; ts_parse_table_1666; ts_parse_table_1667;
   ts_parse_table_1668; ts_parse_table_1669; ts_parse_table_1670; ts_parse_table_1671;
   ts_parse_table_1672; ts_parse_table_1673; ts_parse_table_1674; ts_parse_table_1675;
   ts_parse_table_1676; ts_parse_table_1677; ts_parse_table_1678; ts_parse_table_1679;
   ts_parse_table_1680; ts_parse_table_1681; ts_parse_table_1682; ts_parse_table_1683;
   ts_parse_table_1684; ts_parse_table_1685; ts_parse_table_1686; ts_parse_table_1687;
   ts_parse_table_1688; ts_parse_table_1689; ts_parse_table_1690; ts_parse_table_1691;
   ts_parse_table_1692; ts_parse_table_1693; ts_parse_table_1694; ts_parse_table_1695;
   ts_parse_table_1696; ts_parse_table_1697; ts_parse_table_1698; ts_parse_table_1699;
   ts_parse_table_1700; ts_parse_table_1701; ts_parse_table_1702; ts_parse_table_1703;
   ts_parse_table_1704; ts_parse_table_1705; ts_parse_table_1706; ts_parse_table_1707;
   ts_parse_table_1708; ts_parse_table_1709; ts_parse_table_1710; ts_parse_table_1711;
   ts_parse_table_1712; ts_parse_table_1713; ts_parse_table_1714; ts_parse_table_1715;
   ts_parse_table_1716; ts_parse_table_1717; ts_parse_table_1718; ts_parse_table_1719;
   ts_parse_table_1720; ts_parse_table_1721; ts_parse_table_1722; ts_parse_table_1723;
   ts_parse_table_1724; ts_parse_table_1725; ts_parse_table_1726; ts_parse_table_1727;
   ts_parse_table_1728; ts_parse_table_1729; ts_parse_table_1730; ts_parse_table_1731;
   ts_parse_table_1732; ts_parse_table_1733; ts_parse_table_1734; ts_parse_table_1735;
   ts_parse_table_1736; ts_parse_table_1737; ts_parse_table_1738; ts_parse_table_1739;
   ts_parse_table_1740; ts_parse_table_1741; ts_parse_table_1742; ts_parse_table_1743;
   ts_parse_table_1744; ts_parse_table_1745; ts_parse_table_1746; ts_parse_table_1747;
   ts_parse_table_1748; ts_parse_table_1749; ts_parse_table_1750; ts_parse_table_1751;
   ts_parse_table_1752; ts_parse_table_1753; ts_parse_table_1754; ts_parse_table_1755;
   ts_parse_table_1756; ts_parse_table_1757; ts_parse_table_1758; ts_parse_table_1759;
   ts_parse_table_1760; ts_parse_table_1761; ts_parse_table_1762; ts_parse_table_1763;
   ts_parse_table_1764; ts_parse_table_1765; ts_parse_table_1766; ts_parse_table_1767;
   ts_parse_table_1768; ts_parse_table_1769; ts_parse_table_1770; ts_parse_table_1771;
   ts_parse_table_1772; ts_parse_table_1773; ts_parse_table_1774; ts_parse_table_1775;
   ts_parse_table_1776; ts_parse_table_1777; ts_parse_table_1778; ts_parse_table_1779;
   ts_parse_table_1780; ts_parse_table_1781; ts_parse_table_1782; ts_parse_table_1783;
   ts_parse_table_1784; ts_parse_table_1785; ts_parse_table_1786; ts_parse_table_1787;
   ts_parse_table_1788; ts_parse_table_1789; ts_parse_table_1790; ts_parse_table_1791;
   ts_parse_table_1792; ts_parse_table_1793; ts_parse_table_1794; ts_parse_table_1795;
   ts_parse_table_1796; ts_parse_table_1797; ts_parse_table_1798; ts_parse_table_1799;
   ts_parse_table_1800; ts_parse_table_1801; ts_parse_table_1802; ts_parse_table_1803;
   ts_parse_table_1804; ts_parse_table_1805; ts_parse_table_1806; ts_parse_table_1807;
   ts_parse_table_1808; ts_parse_table_1809; ts_parse_table_1810; ts_parse_table_1811;
   ts_parse_table_1812; ts_parse_table_1813; ts_parse_table_1814; ts_parse_table_1815;
   ts_parse_table_1816; ts_parse_table_1817; ts_parse_table_1818; ts_parse_table_1819;
   ts_parse_table_1820; ts_parse_table_1821; ts_parse_table_1822; ts_parse_table_1823;
   ts_parse_table_1824; ts_parse_table_1825; ts_parse_table_1826; ts_parse_table_1827;
   ts_parse_table_1828; ts_parse_table_1829; ts_parse_table_1830; ts_parse_table_1831;
   ts_parse_table_1832; ts_parse_table_1833; ts_parse_table_1834; ts_parse_table_1835;
   ts_parse_table_1836; ts_parse_table_1837; ts_parse_table_1838; ts_parse_table_1839;
   ts_parse_table_1840; ts_parse_table_1841; ts_parse_table_1842; ts_parse_table_1843;
   ts_parse_table_1844; ts_parse_table_1845; ts_parse_table_1846; ts_parse_table_1847;
   ts_parse_table_1848; ts_parse_table_1849; ts_parse_table_1850; ts_parse_table_1851;
   ts_parse_table_1852; ts_parse_table_1853; ts_parse_table_1854; ts_parse_table_1855;
   ts_parse_table_1856; ts_parse_table_1857; ts_parse_table_1858
  ].
