(* ===== verification/ParseTable10.v ===== *)
(** * The parse table of [parser.c], states 1859 to 2153

    One definition for each row of [ts_parse_table], with the initializers of
    the row in the order of the source; consecutive initializers of the same
    value are one group. *)

From S2P Require Import Prelude.
From S2P Require Import Symbols.
From S2P Require Import ParseTypes.

(** State 1859. *)
Definition ts_parse_table_1859 : parse_row :=
  [STATE 2907 [sym__ppIf]; STATE 2561 [sym__procAttributeNoExt];
   STATE 2564 [sym__procAttributesPp]; STATE 15242 [sym_procAttribute];
   STATE 1874 [aux_sym__declProc_repeat1]; ACTIONS 12826 [anon_sym_LBRACK];
   ACTIONS 5574 [aux_sym_ppUsesBlock_token1]; ACTIONS 3 [sym__space];
   ACTIONS 5 [sym_ppDirective]; ACTIONS 3 [sym_comment]; ACTIONS 1016 [sym_kDefault;
   sym_kNodefault]; ACTIONS 11641 [sym_kDispId]; ACTIONS 5567 [sym_kGeneric; sym_kOperator];
   ACTIONS 11643 [sym_kPublic]; ACTIONS 1016 [sym_kStatic; sym_kVirtual; sym_kAbstract;
   sym_kDynamic; sym_kOverride; sym_kOverload; sym_kReintroduce; sym_kStdcall; sym_kCdecl;
   sym_kCppdecl; sym_kPascal; sym_kRegister; sym_kMwpascal]; ACTIONS 11645 [sym_kMessage];
   ACTIONS 11647 [sym_kDeprecated]; ACTIONS 1016 [sym_kExperimental; sym_kPlatform;
   sym_kUnimplemented; sym_kCvar]; ACTIONS 11649 [sym_kExport]; ACTIONS 1016 [sym_kFar;
   sym_kNear; sym_kSafecall; sym_kAssembler; sym_kNostackframe; sym_kInterrupt; sym_kNoreturn;
   sym_kIocheck; sym_kLocal; sym_kHardfloat; sym_kSoftfloat; sym_kMs_abi_default;
   sym_kMs_abi_cdecl; sym_kSaveregisters; sym_kSysv_abi_default; sym_kSysv_abi_cdecl;
   sym_kVectorcall; sym_kVarargs; sym_kWinapi]; ACTIONS 11651 [sym_kAlias];
   ACTIONS 5567 [sym_kClass; sym_kConst; sym_kConstructor; sym_kDestructor; sym_kEnd;
   sym_kExports; sym_kFinalization; sym_kFunction; sym_kImplementation; sym_kInitialization];
   ACTIONS 1016 [sym_kInline]; ACTIONS 5567 [sym_kInterface; sym_kLabel; sym_kProcedure;
   sym_kProperty; sym_kResourcestring; sym_kThreadvar; sym_kType; sym_kUses; sym_kVar]].

(** State 1860. *)
Definition ts_parse_table_1860 : parse_row :=
  [STATE 2907 [sym__ppIf]; STATE 2561 [sym__procAttributeNoExt];
   STATE 2564 [sym__procAttributesPp]; STATE 15242 [sym_procAttribute];
   STATE 1716 [aux_sym__declProc_repeat1]; ACTIONS 12829 [anon_sym_LBRACK];
   ACTIONS 5408 [aux_sym_ppUsesBlock_token1]; ACTIONS 3 [sym__space];
   ACTIONS 5 [sym_ppDirective]; ACTIONS 3 [sym_comment]; ACTIONS 1016 [sym_kDefault;
   sym_kNodefault]; ACTIONS 11641 [sym_kDispId]; ACTIONS 5401 [sym_kGeneric; sym_kOperator];
   ACTIONS 11643 [sym_kPublic]; ACTIONS 1016 [sym_kStatic; sym_kVirtual; sym_kAbstract;
   sym_kDynamic; sym_kOverride; sym_kOverload; sym_kReintroduce; sym_kStdcall; sym_kCdecl;
   sym_kCppdecl; sym_kPascal; sym_kRegister; sym_kMwpascal]; ACTIONS 11645 [sym_kMessage];
   ACTIONS 11647 [sym_kDeprecated]; ACTIONS 1016 [sym_kExperimental; sym_kPlatform;
   sym_kUnimplemented; sym_kCvar]; ACTIONS 11649 [sym_kExport]; ACTIONS 1016 [sym_kFar;
   sym_kNear; sym_kSafecall; sym_kAssembler; sym_kNostackframe; sym_kInterrupt; sym_kNoreturn;
   sym_kIocheck; sym_kLocal; sym_kHardfloat; sym_kSoftfloat; sym_kMs_abi_default;
   sym_kMs_abi_cdecl; sym_kSaveregisters; sym_kSysv_abi_default; sym_kSysv_abi_cdecl;
   sym_kVectorcall; sym_kVarargs; sym_kWinapi]; ACTIONS 11651 [sym_kAlias];
   ACTIONS 5401 [sym_kClass; sym_kConst; sym_kConstructor; sym_kDestructor; sym_kEnd;
   sym_kExports; sym_kFinalization; sym_kFunction; sym_kImplementation; sym_kInitialization];
   ACTIONS 1016 [sym_kInline]; ACTIONS 5401 [sym_kInterface; sym_kLabel; sym_kProcedure;
   sym_kProperty; sym_kResourcestring; sym_kThreadvar; sym_kType; sym_kUses; sym_kVar]].

(** State 1861. *)
Definition ts_parse_table_1861 : parse_row :=
  [STATE 2907 [sym__ppIf]; STATE 2561 [sym__procAttributeNoExt];
   STATE 2564 [sym__procAttributesPp]; STATE 15242 [sym_procAttribute];
   STATE 1875 [aux_sym__declProc_repeat1]; ACTIONS 12832 [anon_sym_LBRACK];
   ACTIONS 5439 [aux_sym_ppUsesBlock_token1]; ACTIONS 3 [sym__space];
   ACTIONS 5 [sym_ppDirective]; ACTIONS 3 [sym_comment]; ACTIONS 1016 [sym_kDefault;
   sym_kNodefault]; ACTIONS 11641 [sym_kDispId]; ACTIONS 5432 [sym_kGeneric; sym_kOperator];
   ACTIONS 11643 [sym_kPublic]; ACTIONS 1016 [sym_kStatic; sym_kVirtual; sym_kAbstract;
   sym_kDynamic; sym_kOverride; sym_kOverload; sym_kReintroduce; sym_kStdcall; sym_kCdecl;
   sym_kCppdecl; sym_kPascal; sym_kRegister; sym_kMwpascal]; ACTIONS 11645 [sym_kMessage];
   ACTIONS 11647 [sym_kDeprecated]; ACTIONS 1016 [sym_kExperimental; sym_kPlatform;
   sym_kUnimplemented; sym_kCvar]; ACTIONS 11649 [sym_kExport]; ACTIONS 1016 [sym_kFar;
   sym_kNear; sym_kSafecall; sym_kAssembler; sym_kNostackframe; sym_kInterrupt; sym_kNoreturn;
   sym_kIocheck; sym_kLocal; sym_kHardfloat; sym_kSoftfloat; sym_kMs_abi_default;
   sym_kMs_abi_cdecl; sym_kSaveregisters; sym_kSysv_abi_default; sym_kSysv_abi_cdecl;
   sym_kVectorcall; sym_kVarargs; sym_kWinapi]; ACTIONS 11651 [sym_kAlias];
   ACTIONS 5432 [sym_kClass; sym_kConst; sym_kConstructor; sym_kDestructor; sym_kEnd;
   sym_kExports; sym_kFinalization; sym_kFunction; sym_kImplementation; sym_kInitialization];
   ACTIONS 1016 [sym_kInline]; ACTIONS 5432 [sym_kInterface; sym_kLabel; sym_kProcedure;
   sym_kProperty; sym_kResourcestring; sym_kThreadvar; sym_kType; sym_kUses; sym_kVar]].

(** State 1862. *)
Definition ts_parse_table_1862 : parse_row :=
  [STATE 2907 [sym__ppIf]; STATE 2561 [sym__procAttributeNoExt];
   STATE 2564 [sym__procAttributesPp]; STATE 15242 [sym_procAttribute];
   STATE 1716 [aux_sym__declProc_repeat1]; ACTIONS 12835 [anon_sym_LBRACK];
   ACTIONS 5473 [aux_sym_ppUsesBlock_token1]; ACTIONS 3 [sym__space];
   ACTIONS 5 [sym_ppDirective]; ACTIONS 3 [sym_comment]; ACTIONS 1016 [sym_kDefault;
   sym_kNodefault]; ACTIONS 11641 [sym_kDispId]; ACTIONS 5466 [sym_kGeneric; sym_kOperator];
   ACTIONS 11643 [sym_kPublic]; ACTIONS 1016 [sym_kStatic; sym_kVirtual; sym_kAbstract;
   sym_kDynamic; sym_kOverride; sym_kOverload; sym_kReintroduce; sym_kStdcall; sym_kCdecl;
   sym_kCppdecl; sym_kPascal; sym_kRegister; sym_kMwpascal]; ACTIONS 11645 [sym_kMessage];
   ACTIONS 11647 [sym_kDeprecated]; ACTIONS 1016 [sym_kExperimental; sym_kPlatform;
   sym_kUnimplemented; sym_kCvar]; ACTIONS 11649 [sym_kExport]; ACTIONS 1016 [sym_kFar;
   sym_kNear; sym_kSafecall; sym_kAssembler; sym_kNostackframe; sym_kInterrupt; sym_kNoreturn;
   sym_kIocheck; sym_kLocal; sym_kHardfloat; sym_kSoftfloat; sym_kMs_abi_default;
   sym_kMs_abi_cdecl; sym_kSaveregisters; sym_kSysv_abi_default; sym_kSysv_abi_cdecl;
   sym_kVectorcall; sym_kVarargs; sym_kWinapi]; ACTIONS 11651 [sym_kAlias];
   ACTIONS 5466 [sym_kClass; sym_kConst; sym_kConstructor; sym_kDestructor; sym_kEnd;
   sym_kExports; sym_kFinalization; sym_kFunction; sym_kImplementation; sym_kInitialization];
   ACTIONS 1016 [sym_kInline]; ACTIONS 5466 [sym_kInterface; sym_kLabel; sym_kProcedure;
   sym_kProperty; sym_kResourcestring; sym_kThreadvar; sym_kType; sym_kUses; sym_kVar]].

(** State 1863. *)
Definition ts_parse_table_1863 : parse_row :=
  [STATE 2907 [sym__ppIf]; STATE 2561 [sym__procAttributeNoExt];
   STATE 2564 [sym__procAttributesPp]; STATE 15242 [sym_procAttribute];
   STATE 1876 [aux_sym__declProc_repeat1]; ACTIONS 12838 [anon_sym_LBRACK];
   ACTIONS 5664 [aux_sym_ppUsesBlock_token1]; ACTIONS 3 [sym__space];
   ACTIONS 5 [sym_ppDirective]; ACTIONS 3 [sym_comment]; ACTIONS 1016 [sym_kDefault;
   sym_kNodefault]; ACTIONS 11641 [sym_kDispId]; ACTIONS 5657 [sym_kGeneric; sym_kOperator];
   ACTIONS 11643 [sym_kPublic]; ACTIONS 1016 [sym_kStatic; sym_kVirtual; sym_kAbstract;
   sym_kDynamic; sym_kOverride; sym_kOverload; sym_kReintroduce; sym_kStdcall; sym_kCdecl;
   sym_kCppdecl; sym_kPascal; sym_kRegister; sym_kMwpascal]; ACTIONS 11645 [sym_kMessage];
   ACTIONS 11647 [sym_kDeprecated]; ACTIONS 1016 [sym_kExperimental; sym_kPlatform;
   sym_kUnimplemented; sym_kCvar]; ACTIONS 11649 [sym_kExport]; ACTIONS 1016 [sym_kFar;
   sym_kNear; sym_kSafecall; sym_kAssembler; sym_kNostackframe; sym_kInterrupt; sym_kNoreturn;
   sym_kIocheck; sym_kLocal; sym_kHardfloat; sym_kSoftfloat; sym_kMs_abi_default;
   sym_kMs_abi_cdecl; sym_kSaveregisters; sym_kSysv_abi_default; sym_kSysv_abi_cdecl;
   sym_kVectorcall; sym_kVarargs; sym_kWinapi]; ACTIONS 11651 [sym_kAlias];
   ACTIONS 5657 [sym_kClass; sym_kConst; sym_kConstructor; sym_kDestructor; sym_kEnd;
   sym_kExports; sym_kFinalization; sym_kFunction; sym_kImplementation; sym_kInitialization];
   ACTIONS 1016 [sym_kInline]; ACTIONS 5657 [sym_kInterface; sym_kLabel; sym_kProcedure;
   sym_kProperty; sym_kResourcestring; sym_kThreadvar; sym_kType; sym_kUses; sym_kVar]].

(** State 1864. *)
Definition ts_parse_table_1864 : parse_row :=
  [STATE 2907 [sym__ppIf]; STATE 2561 [sym__procAttributeNoExt];
   STATE 2564 [sym__procAttributesPp]; STATE 15242 [sym_procAttribute];
   STATE 1716 [aux_sym__declProc_repeat1]; ACTIONS 12841 [anon_sym_LBRACK];
   ACTIONS 5698 [aux_sym_ppUsesBlock_token1]; ACTIONS 3 [sym__space];
   ACTIONS 5 [sym_ppDirective]; ACTIONS 3 [sym_comment]; ACTIONS 1016 [sym_kDefault;
   sym_kNodefault]; ACTIONS 11641 [sym_kDispId]; ACTIONS 5691 [sym_kGeneric; sym_kOperator];
   ACTIONS 11643 [sym_kPublic]; ACTIONS 1016 [sym_kStatic; sym_kVirtual; sym_kAbstract;
   sym_kDynamic; sym_kOverride; sym_kOverload; sym_kReintroduce; sym_kStdcall; sym_kCdecl;
   sym_kCppdecl; sym_kPascal; sym_kRegister; sym_kMwpascal]; ACTIONS 11645 [sym_kMessage];
   ACTIONS 11647 [sym_kDeprecated]; ACTIONS 1016 [sym_kExperimental; sym_kPlatform;
   sym_kUnimplemented; sym_kCvar]; ACTIONS 11649 [sym_kExport]; ACTIONS 1016 [sym_kFar;
   sym_kNear; sym_kSafecall; sym_kAssembler; sym_kNostackframe; sym_kInterrupt; sym_kNoreturn;
   sym_kIocheck; sym_kLocal; sym_kHardfloat; sym_kSoftfloat; sym_kMs_abi_default;
   sym_kMs_abi_cdecl; sym_kSaveregisters; sym_kSysv_abi_default; sym_kSysv_abi_cdecl;
   sym_kVectorcall; sym_kVarargs; sym_kWinapi]; ACTIONS 11651 [sym_kAlias];
   ACTIONS 5691 [sym_kClass; sym_kConst; sym_kConstructor; sym_kDestructor; sym_kEnd;
   sym_kExports; sym_kFinalization; sym_kFunction; sym_kImplementation; sym_kInitialization];
   ACTIONS 1016 [sym_kInline]; ACTIONS 5691 [sym_kInterface; sym_kLabel; sym_kProcedure;
   sym_kProperty; sym_kResourcestring; sym_kThreadvar; sym_kType; sym_kUses; sym_kVar]].

(** State 1865. *)
Definition ts_parse_table_1865 : parse_row :=
  [STATE 2907 [sym__ppIf]; STATE 2561 [sym__procAttributeNoExt];
   STATE 2564 [sym__procAttributesPp]; STATE 15242 [sym_procAttribute];
   STATE 1716 [aux_sym__declProc_repeat1]; ACTIONS 12844 [anon_sym_LBRACK];
   ACTIONS 5757 [aux_sym_ppUsesBlock_token1]; ACTIONS 3 [sym__space];
   ACTIONS 5 [sym_ppDirective]; ACTIONS 3 [sym_comment]; ACTIONS 1016 [sym_kDefault;
   sym_kNodefault]; ACTIONS 11641 [sym_kDispId]; ACTIONS 5750 [sym_kGeneric; sym_kOperator];
   ACTIONS 11643 [sym_kPublic]; ACTIONS 1016 [sym_kStatic; sym_kVirtual; sym_kAbstract;
   sym_kDynamic; sym_kOverride; sym_kOverload; sym_kReintroduce; sym_kStdcall; sym_kCdecl;
   sym_kCppdecl; sym_kPascal; sym_kRegister; sym_kMwpascal]; ACTIONS 11645 [sym_kMessage];
   ACTIONS 11647 [sym_kDeprecated]; ACTIONS 1016 [sym_kExperimental; sym_kPlatform;
   sym_kUnimplemented; sym_kCvar]; ACTIONS 11649 [sym_kExport]; ACTIONS 1016 [sym_kFar;
   sym_kNear; sym_kSafecall; sym_kAssembler; sym_kNostackframe; sym_kInterrupt; sym_kNoreturn;
   sym_kIocheck; sym_kLocal; sym_kHardfloat; sym_kSoftfloat; sym_kMs_abi_default;
   sym_kMs_abi_cdecl; sym_kSaveregisters; sym_kSysv_abi_default; sym_kSysv_abi_cdecl;
   sym_kVectorcall; sym_kVarargs; sym_kWinapi]; ACTIONS 11651 [sym_kAlias];
   ACTIONS 5750 [sym_kClass; sym_kConst; sym_kConstructor; sym_kDestructor; sym_kEnd;
   sym_kExports; sym_kFinalization; sym_kFunction; sym_kImplementation; sym_kInitialization];
   ACTIONS 1016 [sym_kInline]; ACTIONS 5750 [sym_kInterface; sym_kLabel; sym_kProcedure;
   sym_kProperty; sym_kResourcestring; sym_kThreadvar; sym_kType; sym_kUses; sym_kVar]].

(** State 1866. *)
Definition ts_parse_table_1866 : parse_row :=
  [STATE 2907 [sym__ppIf]; STATE 2561 [sym__procAttributeNoExt];
   STATE 2564 [sym__procAttributesPp]; STATE 15242 [sym_procAttribute];
   STATE 1878 [aux_sym__declProc_repeat1]; ACTIONS 12847 [anon_sym_LBRACK];
   ACTIONS 5900 [aux_sym_ppUsesBlock_token1]; ACTIONS 3 [sym__space];
   ACTIONS 5 [sym_ppDirective]; ACTIONS 3 [sym_comment]; ACTIONS 1016 [sym_kDefault;
   sym_kNodefault]; ACTIONS 11641 [sym_kDispId]; ACTIONS 5893 [sym_kGeneric; sym_kOperator];
   ACTIONS 11643 [sym_kPublic]; ACTIONS 1016 [sym_kStatic; sym_kVirtual; sym_kAbstract;
   sym_kDynamic; sym_kOverride; sym_kOverload; sym_kReintroduce; sym_kStdcall; sym_kCdecl;
   sym_kCppdecl; sym_kPascal; sym_kRegister; sym_kMwpascal]; ACTIONS 11645 [sym_kMessage];
   ACTIONS 11647 [sym_kDeprecated]; ACTIONS 1016 [sym_kExperimental; sym_kPlatform;
   sym_kUnimplemented; sym_kCvar]; ACTIONS 11649 [sym_kExport]; ACTIONS 1016 [sym_kFar;
   sym_kNear; sym_kSafecall; sym_kAssembler; sym_kNostackframe; sym_kInterrupt; sym_kNoreturn;
   sym_kIocheck; sym_kLocal; sym_kHardfloat; sym_kSoftfloat; sym_kMs_abi_default;
   sym_kMs_abi_cdecl; sym_kSaveregisters; sym_kSysv_abi_default; sym_kSysv_abi_cdecl;
   sym_kVectorcall; sym_kVarargs; sym_kWinapi]; ACTIONS 11651 [sym_kAlias];
   ACTIONS 5893 [sym_kClass; sym_kConst; sym_kConstructor; sym_kDestructor; sym_kEnd;
   sym_kExports; sym_kFinalization; sym_kFunction; sym_kImplementation; sym_kInitialization];
   ACTIONS 1016 [sym_kInline]; ACTIONS 5893 [sym_kInterface; sym_kLabel; sym_kProcedure;
   sym_kProperty; sym_kResourcestring; sym_kThreadvar; sym_kType; sym_kUses; sym_kVar]].

(** State 1867. *)
Definition ts_parse_table_1867 : parse_row :=
  [STATE 2907 [sym__ppIf]; STATE 2561 [sym__procAttributeNoExt];
   STATE 2564 [sym__procAttributesPp]; STATE 15242 [sym_procAttribute];
   STATE 1879 [aux_sym__declProc_repeat1]; ACTIONS 12850 [anon_sym_LBRACK];
   ACTIONS 5934 [aux_sym_ppUsesBlock_token1]; ACTIONS 3 [sym__space];
   ACTIONS 5 [sym_ppDirective]; ACTIONS 3 [sym_comment]; ACTIONS 1016 [sym_kDefault;
   sym_kNodefault]; ACTIONS 11641 [sym_kDispId]; ACTIONS 5927 [sym_kGeneric; sym_kOperator];
   ACTIONS 11643 [sym_kPublic]; ACTIONS 1016 [sym_kStatic; sym_kVirtual; sym_kAbstract;
   sym_kDynamic; sym_kOverride; sym_kOverload; sym_kReintroduce; sym_kStdcall; sym_kCdecl;
   sym_kCppdecl; sym_kPascal; sym_kRegister; sym_kMwpascal]; ACTIONS 11645 [sym_kMessage];
   ACTIONS 11647 [sym_kDeprecated]; ACTIONS 1016 [sym_kExperimental; sym_kPlatform;
   sym_kUnimplemented; sym_kCvar]; ACTIONS 11649 [sym_kExport]; ACTIONS 1016 [sym_kFar;
   sym_kNear; sym_kSafecall; sym_kAssembler; sym_kNostackframe; sym_kInterrupt; sym_kNoreturn;
   sym_kIocheck; sym_kLocal; sym_kHardfloat; sym_kSoftfloat; sym_kMs_abi_default;
   sym_kMs_abi_cdecl; sym_kSaveregisters; sym_kSysv_abi_default; sym_kSysv_abi_cdecl;
   sym_kVectorcall; sym_kVarargs; sym_kWinapi]; ACTIONS 11651 [sym_kAlias];
   ACTIONS 5927 [sym_kClass; sym_kConst; sym_kConstructor; sym_kDestructor; sym_kEnd;
   sym_kExports; sym_kFinalization; sym_kFunction; sym_kImplementation; sym_kInitialization];
   ACTIONS 1016 [sym_kInline]; ACTIONS 5927 [sym_kInterface; sym_kLabel; sym_kProcedure;
   sym_kProperty; sym_kResourcestring; sym_kThreadvar; sym_kType; sym_kUses; sym_kVar]].

(** State 1868. *)
Definition ts_parse_table_1868 : parse_row :=
  [STATE 2907 [sym__ppIf]; STATE 2561 [sym__procAttributeNoExt];
   STATE 2564 [sym__procAttributesPp]; STATE 15242 [sym_procAttribute];
   STATE 1716 [aux_sym__declProc_repeat1]; ACTIONS 12853 [anon_sym_LBRACK];
   ACTIONS 6003 [aux_sym_ppUsesBlock_token1]; ACTIONS 3 [sym__space];
   ACTIONS 5 [sym_ppDirective]; ACTIONS 3 [sym_comment]; ACTIONS 1016 [sym_kDefault;
   sym_kNodefault]; ACTIONS 11641 [sym_kDispId]; ACTIONS 5996 [sym_kGeneric; sym_kOperator];
   ACTIONS 11643 [sym_kPublic]; ACTIONS 1016 [sym_kStatic; sym_kVirtual; sym_kAbstract;
   sym_kDynamic; sym_kOverride; sym_kOverload; sym_kReintroduce; sym_kStdcall; sym_kCdecl;
   sym_kCppdecl; sym_kPascal; sym_kRegister; sym_kMwpascal]; ACTIONS 11645 [sym_kMessage];
   ACTIONS 11647 [sym_kDeprecated]; ACTIONS 1016 [sym_kExperimental; sym_kPlatform;
   sym_kUnimplemented; sym_kCvar]; ACTIONS 11649 [sym_kExport]; ACTIONS 1016 [sym_kFar;
   sym_kNear; sym_kSafecall; sym_kAssembler; sym_kNostackframe; sym_kInterrupt; sym_kNoreturn;
   sym_kIocheck; sym_kLocal; sym_kHardfloat; sym_kSoftfloat; sym_kMs_abi_default;
   sym_kMs_abi_cdecl; sym_kSaveregisters; sym_kSysv_abi_default; sym_kSysv_abi_cdecl;
   sym_kVectorcall; sym_kVarargs; sym_kWinapi]; ACTIONS 11651 [sym_kAlias];
   ACTIONS 5996 [sym_kClass; sym_kConst; sym_kConstructor; sym_kDestructor; sym_kEnd;
   sym_kExports; sym_kFinalization; sym_kFunction; sym_kImplementation; sym_kInitialization];
   ACTIONS 1016 [sym_kInline]; ACTIONS 5996 [sym_kInterface; sym_kLabel; sym_kProcedure;
   sym_kProperty; sym_kResourcestring; sym_kThreadvar; sym_kType; sym_kUses; sym_kVar]].

(** State 1869. *)
Definition ts_parse_table_1869 : parse_row :=
  [STATE 2907 [sym__ppIf]; STATE 2561 [sym__procAttributeNoExt];
   STATE 2564 [sym__procAttributesPp]; STATE 15242 [sym_procAttribute];
   STATE 1716 [aux_sym__declProc_repeat1]; ACTIONS 12856 [anon_sym_LBRACK];
   ACTIONS 6110 [aux_sym_ppUsesBlock_token1]; ACTIONS 3 [sym__space];
   ACTIONS 5 [sym_ppDirective]; ACTIONS 3 [sym_comment]; ACTIONS 1016 [sym_kDefault;
   sym_kNodefault]; ACTIONS 11641 [sym_kDispId]; ACTIONS 6103 [sym_kGeneric; sym_kOperator];
   ACTIONS 11643 [sym_kPublic]; ACTIONS 1016 [sym_kStatic; sym_kVirtual; sym_kAbstract;
   sym_kDynamic; sym_kOverride; sym_kOverload; sym_kReintroduce; sym_kStdcall; sym_kCdecl;
   sym_kCppdecl; sym_kPascal; sym_kRegister; sym_kMwpascal]; ACTIONS 11645 [sym_kMessage];
   ACTIONS 11647 [sym_kDeprecated]; ACTIONS 1016 [sym_kExperimental; sym_kPlatform;
   sym_kUnimplemented; sym_kCvar]; ACTIONS 11649 [sym_kExport]; ACTIONS 1016 [sym_kFar;
   sym_kNear; sym_kSafecall; sym_kAssembler; sym_kNostackframe; sym_kInterrupt; sym_kNoreturn;
   sym_kIocheck; sym_kLocal; sym_kHardfloat; sym_kSoftfloat; sym_kMs_abi_default;
   sym_kMs_abi_cdecl; sym_kSaveregisters; sym_kSysv_abi_default; sym_kSysv_abi_cdecl;
   sym_kVectorcall; sym_kVarargs; sym_kWinapi]; ACTIONS 11651 [sym_kAlias];
   ACTIONS 6103 [sym_kClass; sym_kConst; sym_kConstructor; sym_kDestructor; sym_kEnd;
   sym_kExports; sym_kFinalization; sym_kFunction; sym_kImplementation; sym_kInitialization];
   ACTIONS 1016 [sym_kInline]; ACTIONS 6103 [sym_kInterface; sym_kLabel; sym_kProcedure;
   sym_kProperty; sym_kResourcestring; sym_kThreadvar; sym_kType; sym_kUses; sym_kVar]].

(** State 1870. *)
Definition ts_parse_table_1870 : parse_row :=
  [STATE 2907 [sym__ppIf]; STATE 2561 [sym__procAttributeNoExt];
   STATE 2564 [sym__procAttributesPp]; STATE 15242 [sym_procAttribute];
   STATE 1881 [aux_sym__declProc_repeat1]; ACTIONS 12859 [anon_sym_LBRACK];
   ACTIONS 6172 [aux_sym_ppUsesBlock_token1]; ACTIONS 3 [sym__space];
   ACTIONS 5 [sym_ppDirective]; ACTIONS 3 [sym_comment]; ACTIONS 1016 [sym_kDefault;
   sym_kNodefault]; ACTIONS 11641 [sym_kDispId]; ACTIONS 6165 [sym_kGeneric; sym_kOperator];
   ACTIONS 11643 [sym_kPublic]; ACTIONS 1016 [sym_kStatic; sym_kVirtual; sym_kAbstract;
   sym_kDynamic; sym_kOverride; sym_kOverload; sym_kReintroduce; sym_kStdcall; sym_kCdecl;
   sym_kCppdecl; sym_kPascal; sym_kRegister; sym_kMwpascal]; ACTIONS 11645 [sym_kMessage];
   ACTIONS 11647 [sym_kDeprecated]; ACTIONS 1016 [sym_kExperimental; sym_kPlatform;
   sym_kUnimplemented; sym_kCvar]; ACTIONS 11649 [sym_kExport]; ACTIONS 1016 [sym_kFar;
   sym_kNear; sym_kSafecall; sym_kAssembler; sym_kNostackframe; sym_kInterrupt; sym_kNoreturn;
   sym_kIocheck; sym_kLocal; sym_kHardfloat; sym_kSoftfloat; sym_kMs_abi_default;
   sym_kMs_abi_cdecl; sym_kSaveregisters; sym_kSysv_abi_default; sym_kSysv_abi_cdecl;
   sym_kVectorcall; sym_kVarargs; sym_kWinapi]; ACTIONS 11651 [sym_kAlias];
   ACTIONS 6165 [sym_kClass; sym_kConst; sym_kConstructor; sym_kDestructor; sym_kEnd;
   sym_kExports; sym_kFinalization; sym_kFunction; sym_kImplementation; sym_kInitialization];
   ACTIONS 1016 [sym_kInline]; ACTIONS 6165 [sym_kInterface; sym_kLabel; sym_kProcedure;
   sym_kProperty; sym_kResourcestring; sym_kThreadvar; sym_kType; sym_kUses; sym_kVar]].

(** State 1871. *)
Definition ts_parse_table_1871 : parse_row :=
  [STATE 2907 [sym__ppIf]; STATE 2561 [sym__procAttributeNoExt];
   STATE 2564 [sym__procAttributesPp]; STATE 15242 [sym_procAttribute];
   STATE 1716 [aux_sym__declProc_repeat1]; ACTIONS 12862 [anon_sym_LBRACK];
   ACTIONS 6216 [aux_sym_ppUsesBlock_token1]; ACTIONS 3 [sym__space];
   ACTIONS 5 [sym_ppDirective]; ACTIONS 3 [sym_comment]; ACTIONS 1016 [sym_kDefault;
   sym_kNodefault]; ACTIONS 11641 [sym_kDispId]; ACTIONS 6209 [sym_kGeneric; sym_kOperator];
   ACTIONS 11643 [sym_kPublic]; ACTIONS 1016 [sym_kStatic; sym_kVirtual; sym_kAbstract;
   sym_kDynamic; sym_kOverride; sym_kOverload; sym_kReintroduce; sym_kStdcall; sym_kCdecl;
   sym_kCppdecl; sym_kPascal; sym_kRegister; sym_kMwpascal]; ACTIONS 11645 [sym_kMessage];
   ACTIONS 11647 [sym_kDeprecated]; ACTIONS 1016 [sym_kExperimental; sym_kPlatform;
   sym_kUnimplemented; sym_kCvar]; ACTIONS 11649 [sym_kExport]; ACTIONS 1016 [sym_kFar;
   sym_kNear; sym_kSafecall; sym_kAssembler; sym_kNostackframe; sym_kInterrupt; sym_kNoreturn;
   sym_kIocheck; sym_kLocal; sym_kHardfloat; sym_kSoftfloat; sym_kMs_abi_default;
   sym_kMs_abi_cdecl; sym_kSaveregisters; sym_kSysv_abi_default; sym_kSysv_abi_cdecl;
   sym_kVectorcall; sym_kVarargs; sym_kWinapi]; ACTIONS 11651 [sym_kAlias];
   ACTIONS 6209 [sym_kClass; sym_kConst; sym_kConstructor; sym_kDestructor; sym_kEnd;
   sym_kExports; sym_kFinalization; sym_kFunction; sym_kImplementation; sym_kInitialization];
   ACTIONS 1016 [sym_kInline]; ACTIONS 6209 [sym_kInterface; sym_kLabel; sym_kProcedure;
   sym_kProperty; sym_kResourcestring; sym_kThreadvar; sym_kType; sym_kUses; sym_kVar]].

(** State 1872. *)
Definition ts_parse_table_1872 : parse_row :=
  [STATE 2907 [sym__ppIf]; STATE 2561 [sym__procAttributeNoExt];
   STATE 2564 [sym__procAttributesPp]; STATE 15242 [sym_procAttribute];
   STATE 1883 [aux_sym__declProc_repeat1]; ACTIONS 12865 [anon_sym_LBRACK];
   ACTIONS 6328 [aux_sym_ppUsesBlock_token1]; ACTIONS 3 [sym__space];
   ACTIONS 5 [sym_ppDirective]; ACTIONS 3 [sym_comment]; ACTIONS 1016 [sym_kDefault;
   sym_kNodefault]; ACTIONS 11641 [sym_kDispId]; ACTIONS 6321 [sym_kGeneric; sym_kOperator];
   ACTIONS 11643 [sym_kPublic]; ACTIONS 1016 [sym_kStatic; sym_kVirtual; sym_kAbstract;
   sym_kDynamic; sym_kOverride; sym_kOverload; sym_kReintroduce; sym_kStdcall; sym_kCdecl;
   sym_kCppdecl; sym_kPascal; sym_kRegister; sym_kMwpascal]; ACTIONS 11645 [sym_kMessage];
   ACTIONS 11647 [sym_kDeprecated]; ACTIONS 1016 [sym_kExperimental; sym_kPlatform;
   sym_kUnimplemented; sym_kCvar]; ACTIONS 11649 [sym_kExport]; ACTIONS 1016 [sym_kFar;
   sym_kNear; sym_kSafecall; sym_kAssembler; sym_kNostackframe; sym_kInterrupt; sym_kNoreturn;
   sym_kIocheck; sym_kLocal; sym_kHardfloat; sym_kSoftfloat; sym_kMs_abi_default;
   sym_kMs_abi_cdecl; sym_kSaveregisters; sym_kSysv_abi_default; sym_kSysv_abi_cdecl;
   sym_kVectorcall; sym_kVarargs; sym_kWinapi]; ACTIONS 11651 [sym_kAlias];
   ACTIONS 6321 [sym_kClass; sym_kConst; sym_kConstructor; sym_kDestructor; sym_kEnd;
   sym_kExports; sym_kFinalization; sym_kFunction; sym_kImplementation; sym_kInitialization];
   ACTIONS 1016 [sym_kInline]; ACTIONS 6321 [sym_kInterface; sym_kLabel; sym_kProcedure;
   sym_kProperty; sym_kResourcestring; sym_kThreadvar; sym_kType; sym_kUses; sym_kVar]].

(** State 1873. *)
Definition ts_parse_table_1873 : parse_row :=
  [STATE 2907 [sym__ppIf]; STATE 2561 [sym__procAttributeNoExt];
   STATE 2564 [sym__procAttributesPp]; STATE 15242 [sym_procAttribute];
   STATE 1884 [aux_sym__declProc_repeat1]; ACTIONS 12868 [anon_sym_LBRACK];
   ACTIONS 6362 [aux_sym_ppUsesBlock_token1]; ACTIONS 3 [sym__space];
   ACTIONS 5 [sym_ppDirective]; ACTIONS 3 [sym_comment]; ACTIONS 1016 [sym_kDefault;
   sym_kNodefault]; ACTIONS 11641 [sym_kDispId]; ACTIONS 6355 [sym_kGeneric; sym_kOperator];
   ACTIONS 11643 [sym_kPublic]; ACTIONS 1016 [sym_kStatic; sym_kVirtual; sym_kAbstract;
   sym_kDynamic; sym_kOverride; sym_kOverload; sym_kReintroduce; sym_kStdcall; sym_kCdecl;
   sym_kCppdecl; sym_kPascal; sym_kRegister; sym_kMwpascal]; ACTIONS 11645 [sym_kMessage];
   ACTIONS 11647 [sym_kDeprecated]; ACTIONS 1016 [sym_kExperimental; sym_kPlatform;
   sym_kUnimplemented; sym_kCvar]; ACTIONS 11649 [sym_kExport]; ACTIONS 1016 [sym_kFar;
   sym_kNear; sym_kSafecall; sym_kAssembler; sym_kNostackframe; sym_kInterrupt; sym_kNoreturn;
   sym_kIocheck; sym_kLocal; sym_kHardfloat; sym_kSoftfloat; sym_kMs_abi_default;
   sym_kMs_abi_cdecl; sym_kSaveregisters; sym_kSysv_abi_default; sym_kSysv_abi_cdecl;
   sym_kVectorcall; sym_kVarargs; sym_kWinapi]; ACTIONS 11651 [sym_kAlias];
   ACTIONS 6355 [sym_kClass; sym_kConst; sym_kConstructor; sym_kDestructor; sym_kEnd;
   sym_kExports; sym_kFinalization; sym_kFunction; sym_kImplementation; sym_kInitialization];
   ACTIONS 1016 [sym_kInline]; ACTIONS 6355 [sym_kInterface; sym_kLabel; sym_kProcedure;
   sym_kProperty; sym_kResourcestring; sym_kThreadvar; sym_kType; sym_kUses; sym_kVar]].

(** State 1874. *)
Definition ts_parse_table_1874 : parse_row :=
  [STATE 2907 [sym__ppIf]; STATE 2561 [sym__procAttributeNoExt];
   STATE 2564 [sym__procAttributesPp]; STATE 15242 [sym_procAttribute];
   STATE 1716 [aux_sym__declProc_repeat1]; ACTIONS 12871 [anon_sym_LBRACK];
   ACTIONS 6396 [aux_sym_ppUsesBlock_token1]; ACTIONS 3 [sym__space];
   ACTIONS 5 [sym_ppDirective]; ACTIONS 3 [sym_comment]; ACTIONS 1016 [sym_kDefault;
   sym_kNodefault]; ACTIONS 11641 [sym_kDispId]; ACTIONS 6389 [sym_kGeneric; sym_kOperator];
   ACTIONS 11643 [sym_kPublic]; ACTIONS 1016 [sym_kStatic; sym_kVirtual; sym_kAbstract;
   sym_kDynamic; sym_kOverride; sym_kOverload; sym_kReintroduce; sym_kStdcall; sym_kCdecl;
   sym_kCppdecl; sym_kPascal; sym_kRegister; sym_kMwpascal]; ACTIONS 11645 [sym_kMessage];
   ACTIONS 11647 [sym_kDeprecated]; ACTIONS 1016 [sym_kExperimental; sym_kPlatform;
   sym_kUnimplemented; sym_kCvar]; ACTIONS 11649 [sym_kExport]; ACTIONS 1016 [sym_kFar;
   sym_kNear; sym_kSafecall; sym_kAssembler; sym_kNostackframe; sym_kInterrupt; sym_kNoreturn;
   sym_kIocheck; sym_kLocal; sym_kHardfloat; sym_kSoftfloat; sym_kMs_abi_default;
   sym_kMs_abi_cdecl; sym_kSaveregisters; sym_kSysv_abi_default; sym_kSysv_abi_cdecl;
   sym_kVectorcall; sym_kVarargs; sym_kWinapi]; ACTIONS 11651 [sym_kAlias];
   ACTIONS 6389 [sym_kClass; sym_kConst; sym_kConstructor; sym_kDestructor; sym_kEnd;
   sym_kExports; sym_kFinalization; sym_kFunction; sym_kImplementation; sym_kInitialization];
   ACTIONS 1016 [sym_kInline]; ACTIONS 6389 [sym_kInterface; sym_kLabel; sym_kProcedure;
   sym_kProperty; sym_kResourcestring; sym_kThreadvar; sym_kType; sym_kUses; sym_kVar]].

(** State 1875. *)
Definition ts_parse_table_1875 : parse_row :=
  [STATE 2907 [sym__ppIf]; STATE 2561 [sym__procAttributeNoExt];
   STATE 2564 [sym__procAttributesPp]; STATE 15242 [sym_procAttribute];
   STATE 1716 [aux_sym__declProc_repeat1]; ACTIONS 12874 [anon_sym_LBRACK];
   ACTIONS 4005 [aux_sym_ppUsesBlock_token1]; ACTIONS 3 [sym__space];
   ACTIONS 5 [sym_ppDirective]; ACTIONS 3 [sym_comment]; ACTIONS 1016 [sym_kDefault;
   sym_kNodefault]; ACTIONS 11641 [sym_kDispId]; ACTIONS 3998 [sym_kGeneric; sym_kOperator];
   ACTIONS 11643 [sym_kPublic]; ACTIONS 1016 [sym_kStatic; sym_kVirtual; sym_kAbstract;
   sym_kDynamic; sym_kOverride; sym_kOverload; sym_kReintroduce; sym_kStdcall; sym_kCdecl;
   sym_kCppdecl; sym_kPascal; sym_kRegister; sym_kMwpascal]; ACTIONS 11645 [sym_kMessage];
   ACTIONS 11647 [sym_kDeprecated]; ACTIONS 1016 [sym_kExperimental; sym_kPlatform;
   sym_kUnimplemented; sym_kCvar]; ACTIONS 11649 [sym_kExport]; ACTIONS 1016 [sym_kFar;
   sym_kNear; sym_kSafecall; sym_kAssembler; sym_kNostackframe; sym_kInterrupt; sym_kNoreturn;
   sym_kIocheck; sym_kLocal; sym_kHardfloat; sym_kSoftfloat; sym_kMs_abi_default;
   sym_kMs_abi_cdecl; sym_kSaveregisters; sym_kSysv_abi_default; sym_kSysv_abi_cdecl;
   sym_kVectorcall; sym_kVarargs; sym_kWinapi]; ACTIONS 11651 [sym_kAlias];
   ACTIONS 3998 [sym_kClass; sym_kConst; sym_kConstructor; sym_kDestructor; sym_kEnd;
   sym_kExports; sym_kFinalization; sym_kFunction; sym_kImplementation; sym_kInitialization];
   ACTIONS 1016 [sym_kInline]; ACTIONS 3998 [sym_kInterface; sym_kLabel; sym_kProcedure;
   sym_kProperty; sym_kResourcestring; sym_kThreadvar; sym_kType; sym_kUses; sym_kVar]].

(** State 1876. *)
Definition ts_parse_table_1876 : parse_row :=
  [STATE 2907 [sym__ppIf]; STATE 2561 [sym__procAttributeNoExt];
   STATE 2564 [sym__procAttributesPp]; STATE 15242 [sym_procAttribute];
   STATE 1716 [aux_sym__declProc_repeat1]; ACTIONS 12877 [anon_sym_LBRACK];
   ACTIONS 3794 [aux_sym_ppUsesBlock_token1]; ACTIONS 3 [sym__space];
   ACTIONS 5 [sym_ppDirective]; ACTIONS 3 [sym_comment]; ACTIONS 1016 [sym_kDefault;
   sym_kNodefault]; ACTIONS 11641 [sym_kDispId]; ACTIONS 3787 [sym_kGeneric; sym_kOperator];
   ACTIONS 11643 [sym_kPublic]; ACTIONS 1016 [sym_kStatic; sym_kVirtual; sym_kAbstract;
   sym_kDynamic; sym_kOverride; sym_kOverload; sym_kReintroduce; sym_kStdcall; sym_kCdecl;
   sym_kCppdecl; sym_kPascal; sym_kRegister; sym_kMwpascal]; ACTIONS 11645 [sym_kMessage];
   ACTIONS 11647 [sym_kDeprecated]; ACTIONS 1016 [sym_kExperimental; sym_kPlatform;
   sym_kUnimplemented; sym_kCvar]; ACTIONS 11649 [sym_kExport]; ACTIONS 1016 [sym_kFar;
   sym_kNear; sym_kSafecall; sym_kAssembler; sym_kNostackframe; sym_kInterrupt; sym_kNoreturn;
   sym_kIocheck; sym_kLocal; sym_kHardfloat; sym_kSoftfloat; sym_kMs_abi_default;
   sym_kMs_abi_cdecl; sym_kSaveregisters; sym_kSysv_abi_default; sym_kSysv_abi_cdecl;
   sym_kVectorcall; sym_kVarargs; sym_kWinapi]; ACTIONS 11651 [sym_kAlias];
   ACTIONS 3787 [sym_kClass; sym_kConst; sym_kConstructor; sym_kDestructor; sym_kEnd;
   sym_kExports; sym_kFinalization; sym_kFunction; sym_kImplementation; sym_kInitialization];
   ACTIONS 1016 [sym_kInline]; ACTIONS 3787 [sym_kInterface; sym_kLabel; sym_kProcedure;
   sym_kProperty; sym_kResourcestring; sym_kThreadvar; sym_kType; sym_kUses; sym_kVar]].

(** State 1877. *)
Definition ts_parse_table_1877 : parse_row :=
  [STATE 2907 [sym__ppIf]; STATE 2561 [sym__procAttributeNoExt];
   STATE 2564 [sym__procAttributesPp]; STATE 15242 [sym_procAttribute];
   STATE 1886 [aux_sym__declProc_repeat1]; ACTIONS 12880 [anon_sym_LBRACK];
   ACTIONS 7326 [aux_sym_ppUsesBlock_token1]; ACTIONS 3 [sym__space];
   ACTIONS 5 [sym_ppDirective]; ACTIONS 3 [sym_comment]; ACTIONS 1016 [sym_kDefault;
   sym_kNodefault]; ACTIONS 11641 [sym_kDispId]; ACTIONS 7319 [sym_kGeneric; sym_kOperator];
   ACTIONS 11643 [sym_kPublic]; ACTIONS 1016 [sym_kStatic; sym_kVirtual; sym_kAbstract;
   sym_kDynamic; sym_kOverride; sym_kOverload; sym_kReintroduce; sym_kStdcall; sym_kCdecl;
   sym_kCppdecl; sym_kPascal; sym_kRegister; sym_kMwpascal]; ACTIONS 11645 [sym_kMessage];
   ACTIONS 11647 [sym_kDeprecated]; ACTIONS 1016 [sym_kExperimental; sym_kPlatform;
   sym_kUnimplemented; sym_kCvar]; ACTIONS 11649 [sym_kExport]; ACTIONS 1016 [sym_kFar;
   sym_kNear; sym_kSafecall; sym_kAssembler; sym_kNostackframe; sym_kInterrupt; sym_kNoreturn;
   sym_kIocheck; sym_kLocal; sym_kHardfloat; sym_kSoftfloat; sym_kMs_abi_default;
   sym_kMs_abi_cdecl; sym_kSaveregisters; sym_kSysv_abi_default; sym_kSysv_abi_cdecl;
   sym_kVectorcall; sym_kVarargs; sym_kWinapi]; ACTIONS 11651 [sym_kAlias];
   ACTIONS 7319 [sym_kClass; sym_kConst; sym_kConstructor; sym_kDestructor; sym_kEnd;
   sym_kExports; sym_kFinalization; sym_kFunction; sym_kImplementation; sym_kInitialization];
   ACTIONS 1016 [sym_kInline]; ACTIONS 7319 [sym_kInterface; sym_kLabel; sym_kProcedure;
   sym_kProperty; sym_kResourcestring; sym_kThreadvar; sym_kType; sym_kUses; sym_kVar]].

(** State 1878. *)
Definition ts_parse_table_1878 : parse_row :=
  [STATE 2907 [sym__ppIf]; STATE 2561 [sym__procAttributeNoExt];
   STATE 2564 [sym__procAttributesPp]; STATE 15242 [sym_procAttribute];
   STATE 1716 [aux_sym__declProc_repeat1]; ACTIONS 12883 [anon_sym_LBRACK];
   ACTIONS 6076 [aux_sym_ppUsesBlock_token1]; ACTIONS 3 [sym__space];
   ACTIONS 5 [sym_ppDirective]; ACTIONS 3 [sym_comment]; ACTIONS 1016 [sym_kDefault;
   sym_kNodefault]; ACTIONS 11641 [sym_kDispId]; ACTIONS 6069 [sym_kGeneric; sym_kOperator];
   ACTIONS 11643 [sym_kPublic]; ACTIONS 1016 [sym_kStatic; sym_kVirtual; sym_kAbstract;
   sym_kDynamic; sym_kOverride; sym_kOverload; sym_kReintroduce; sym_kStdcall; sym_kCdecl;
   sym_kCppdecl; sym_kPascal; sym_kRegister; sym_kMwpascal]; ACTIONS 11645 [sym_kMessage];
   ACTIONS 11647 [sym_kDeprecated]; ACTIONS 1016 [sym_kExperimental; sym_kPlatform;
   sym_kUnimplemented; sym_kCvar]; ACTIONS 11649 [sym_kExport]; ACTIONS 1016 [sym_kFar;
   sym_kNear; sym_kSafecall; sym_kAssembler; sym_kNostackframe; sym_kInterrupt; sym_kNoreturn;
   sym_kIocheck; sym_kLocal; sym_kHardfloat; sym_kSoftfloat; sym_kMs_abi_default;
   sym_kMs_abi_cdecl; sym_kSaveregisters; sym_kSysv_abi_default; sym_kSysv_abi_cdecl;
   sym_kVectorcall; sym_kVarargs; sym_kWinapi]; ACTIONS 11651 [sym_kAlias];
   ACTIONS 6069 [sym_kClass; sym_kConst; sym_kConstructor; sym_kDestructor; sym_kEnd;
   sym_kExports; sym_kFinalization; sym_kFunction; sym_kImplementation; sym_kInitialization];
   ACTIONS 1016 [sym_kInline]; ACTIONS 6069 [sym_kInterface; sym_kLabel; sym_kProcedure;
   sym_kProperty; sym_kResourcestring; sym_kThreadvar; sym_kType; sym_kUses; sym_kVar]].

(** State 1879. *)
Definition ts_parse_table_1879 : parse_row :=
  [STATE 2907 [sym__ppIf]; STATE 2561 [sym__procAttributeNoExt];
   STATE 2564 [sym__procAttributesPp]; STATE 15242 [sym_procAttribute];
   STATE 1716 [aux_sym__declProc_repeat1]; ACTIONS 12886 [anon_sym_LBRACK];
   ACTIONS 6141 [aux_sym_ppUsesBlock_token1]; ACTIONS 3 [sym__space];
   ACTIONS 5 [sym_ppDirective]; ACTIONS 3 [sym_comment]; ACTIONS 1016 [sym_kDefault;
   sym_kNodefault]; ACTIONS 11641 [sym_kDispId]; ACTIONS 6134 [sym_kGeneric; sym_kOperator];
   ACTIONS 11643 [sym_kPublic]; ACTIONS 1016 [sym_kStatic; sym_kVirtual; sym_kAbstract;
   sym_kDynamic; sym_kOverride; sym_kOverload; sym_kReintroduce; sym_kStdcall; sym_kCdecl;
   sym_kCppdecl; sym_kPascal; sym_kRegister; sym_kMwpascal]; ACTIONS 11645 [sym_kMessage];
   ACTIONS 11647 [sym_kDeprecated]; ACTIONS 1016 [sym_kExperimental; sym_kPlatform;
   sym_kUnimplemented; sym_kCvar]; ACTIONS 11649 [sym_kExport]; ACTIONS 1016 [sym_kFar;
   sym_kNear; sym_kSafecall; sym_kAssembler; sym_kNostackframe; sym_kInterrupt; sym_kNoreturn;
   sym_kIocheck; sym_kLocal; sym_kHardfloat; sym_kSoftfloat; sym_kMs_abi_default;
   sym_kMs_abi_cdecl; sym_kSaveregisters; sym_kSysv_abi_default; sym_kSysv_abi_cdecl;
   sym_kVectorcall; sym_kVarargs; sym_kWinapi]; ACTIONS 11651 [sym_kAlias];
   ACTIONS 6134 [sym_kClass; sym_kConst; sym_kConstructor; sym_kDestructor; sym_kEnd;
   sym_kExports; sym_kFinalization; sym_kFunction; sym_kImplementation; sym_kInitialization];
   ACTIONS 1016 [sym_kInline]; ACTIONS 6134 [sym_kInterface; sym_kLabel; sym_kProcedure;
   sym_kProperty; sym_kResourcestring; sym_kThreadvar; sym_kType; sym_kUses; sym_kVar]].

(** State 1880. *)
Definition ts_parse_table_1880 : parse_row :=
  [STATE 2907 [sym__ppIf]; STATE 2561 [sym__procAttributeNoExt];
   STATE 2564 [sym__procAttributesPp]; STATE 15242 [sym_procAttribute];
   STATE 1887 [aux_sym__declProc_repeat1]; ACTIONS 12889 [anon_sym_LBRACK];
   ACTIONS 6256 [aux_sym_ppUsesBlock_token1]; ACTIONS 3 [sym__space];
   ACTIONS 5 [sym_ppDirective]; ACTIONS 3 [sym_comment]; ACTIONS 1016 [sym_kDefault;
   sym_kNodefault]; ACTIONS 11641 [sym_kDispId]; ACTIONS 6249 [sym_kGeneric; sym_kOperator];
   ACTIONS 11643 [sym_kPublic]; ACTIONS 1016 [sym_kStatic; sym_kVirtual; sym_kAbstract;
   sym_kDynamic; sym_kOverride; sym_kOverload; sym_kReintroduce; sym_kStdcall; sym_kCdecl;
   sym_kCppdecl; sym_kPascal; sym_kRegister; sym_kMwpascal]; ACTIONS 11645 [sym_kMessage];
   ACTIONS 11647 [sym_kDeprecated]; ACTIONS 1016 [sym_kExperimental; sym_kPlatform;
   sym_kUnimplemented; sym_kCvar]; ACTIONS 11649 [sym_kExport]; ACTIONS 1016 [sym_kFar;
   sym_kNear; sym_kSafecall; sym_kAssembler; sym_kNostackframe; sym_kInterrupt; sym_kNoreturn;
   sym_kIocheck; sym_kLocal; sym_kHardfloat; sym_kSoftfloat; sym_kMs_abi_default;
   sym_kMs_abi_cdecl; sym_kSaveregisters; sym_kSysv_abi_default; sym_kSysv_abi_cdecl;
   sym_kVectorcall; sym_kVarargs; sym_kWinapi]; ACTIONS 11651 [sym_kAlias];
   ACTIONS 6249 [sym_kClass; sym_kConst; sym_kConstructor; sym_kDestructor; sym_kEnd;
   sym_kExports; sym_kFinalization; sym_kFunction; sym_kImplementation; sym_kInitialization];
   ACTIONS 1016 [sym_kInline]; ACTIONS 6249 [sym_kInterface; sym_kLabel; sym_kProcedure;
   sym_kProperty; sym_kResourcestring; sym_kThreadvar; sym_kType; sym_kUses; sym_kVar]].

(** State 1881. *)
Definition ts_parse_table_1881 : parse_row :=
  [STATE 2907 [sym__ppIf]; STATE 2561 [sym__procAttributeNoExt];
   STATE 2564 [sym__procAttributesPp]; STATE 15242 [sym_procAttribute];
   STATE 1716 [aux_sym__declProc_repeat1]; ACTIONS 12892 [anon_sym_LBRACK];
   ACTIONS 6294 [aux_sym_ppUsesBlock_token1]; ACTIONS 3 [sym__space];
   ACTIONS 5 [sym_ppDirective]; ACTIONS 3 [sym_comment]; ACTIONS 1016 [sym_kDefault;
   sym_kNodefault]; ACTIONS 11641 [sym_kDispId]; ACTIONS 6287 [sym_kGeneric; sym_kOperator];
   ACTIONS 11643 [sym_kPublic]; ACTIONS 1016 [sym_kStatic; sym_kVirtual; sym_kAbstract;
   sym_kDynamic; sym_kOverride; sym_kOverload; sym_kReintroduce; sym_kStdcall; sym_kCdecl;
   sym_kCppdecl; sym_kPascal; sym_kRegister; sym_kMwpascal]; ACTIONS 11645 [sym_kMessage];
   ACTIONS 11647 [sym_kDeprecated]; ACTIONS 1016 [sym_kExperimental; sym_kPlatform;
   sym_kUnimplemented; sym_kCvar]; ACTIONS 11649 [sym_kExport]; ACTIONS 1016 [sym_kFar;
   sym_kNear; sym_kSafecall; sym_kAssembler; sym_kNostackframe; sym_kInterrupt; sym_kNoreturn;
   sym_kIocheck; sym_kLocal; sym_kHardfloat; sym_kSoftfloat; sym_kMs_abi_default;
   sym_kMs_abi_cdecl; sym_kSaveregisters; sym_kSysv_abi_default; sym_kSysv_abi_cdecl;
   sym_kVectorcall; sym_kVarargs; sym_kWinapi]; ACTIONS 11651 [sym_kAlias];
   ACTIONS 6287 [sym_kClass; sym_kConst; sym_kConstructor; sym_kDestructor; sym_kEnd;
   sym_kExports; sym_kFinalization; sym_kFunction; sym_kImplementation; sym_kInitialization];
   ACTIONS 1016 [sym_kInline]; ACTIONS 6287 [sym_kInterface; sym_kLabel; sym_kProcedure;
   sym_kProperty; sym_kResourcestring; sym_kThreadvar; sym_kType; sym_kUses; sym_kVar]].

(** State 1882. *)
Definition ts_parse_table_1882 : parse_row :=
  [STATE 2907 [sym__ppIf]; STATE 2561 [sym__procAttributeNoExt];
   STATE 2564 [sym__procAttributesPp]; STATE 15242 [sym_procAttribute];
   STATE 1888 [aux_sym__declProc_repeat1]; ACTIONS 12895 [anon_sym_LBRACK];
   ACTIONS 5346 [aux_sym_ppUsesBlock_token1]; ACTIONS 3 [sym__space];
   ACTIONS 5 [sym_ppDirective]; ACTIONS 3 [sym_comment]; ACTIONS 1016 [sym_kDefault;
   sym_kNodefault]; ACTIONS 11641 [sym_kDispId]; ACTIONS 5339 [sym_kGeneric; sym_kOperator];
   ACTIONS 11643 [sym_kPublic]; ACTIONS 1016 [sym_kStatic; sym_kVirtual; sym_kAbstract;
   sym_kDynamic; sym_kOverride; sym_kOverload; sym_kReintroduce; sym_kStdcall; sym_kCdecl;
   sym_kCppdecl; sym_kPascal; sym_kRegister; sym_kMwpascal]; ACTIONS 11645 [sym_kMessage];
   ACTIONS 11647 [sym_kDeprecated]; ACTIONS 1016 [sym_kExperimental; sym_kPlatform;
   sym_kUnimplemented; sym_kCvar]; ACTIONS 11649 [sym_kExport]; ACTIONS 1016 [sym_kFar;
   sym_kNear; sym_kSafecall; sym_kAssembler; sym_kNostackframe; sym_kInterrupt; sym_kNoreturn;
   sym_kIocheck; sym_kLocal; sym_kHardfloat; sym_kSoftfloat; sym_kMs_abi_default;
   sym_kMs_abi_cdecl; sym_kSaveregisters; sym_kSysv_abi_default; sym_kSysv_abi_cdecl;
   sym_kVectorcall; sym_kVarargs; sym_kWinapi]; ACTIONS 11651 [sym_kAlias];
   ACTIONS 5339 [sym_kClass; sym_kConst; sym_kConstructor; sym_kDestructor; sym_kEnd;
   sym_kExports; sym_kFinalization; sym_kFunction; sym_kImplementation; sym_kInitialization];
   ACTIONS 1016 [sym_kInline]; ACTIONS 5339 [sym_kInterface; sym_kLabel; sym_kProcedure;
   sym_kProperty; sym_kResourcestring; sym_kThreadvar; sym_kType; sym_kUses; sym_kVar]].

(** State 1883. *)
Definition ts_parse_table_1883 : parse_row :=
  [STATE 2907 [sym__ppIf]; STATE 2561 [sym__procAttributeNoExt];
   STATE 2564 [sym__procAttributesPp]; STATE 15242 [sym_procAttribute];
   STATE 1716 [aux_sym__declProc_repeat1]; ACTIONS 12898 [anon_sym_LBRACK];
   ACTIONS 6712 [aux_sym_ppUsesBlock_token1]; ACTIONS 3 [sym__space];
   ACTIONS 5 [sym_ppDirective]; ACTIONS 3 [sym_comment]; ACTIONS 1016 [sym_kDefault;
   sym_kNodefault]; ACTIONS 11641 [sym_kDispId]; ACTIONS 6705 [sym_kGeneric; sym_kOperator];
   ACTIONS 11643 [sym_kPublic]; ACTIONS 1016 [sym_kStatic; sym_kVirtual; sym_kAbstract;
   sym_kDynamic; sym_kOverride; sym_kOverload; sym_kReintroduce; sym_kStdcall; sym_kCdecl;
   sym_kCppdecl; sym_kPascal; sym_kRegister; sym_kMwpascal]; ACTIONS 11645 [sym_kMessage];
   ACTIONS 11647 [sym_kDeprecated]; ACTIONS 1016 [sym_kExperimental; sym_kPlatform;
   sym_kUnimplemented; sym_kCvar]; ACTIONS 11649 [sym_kExport]; ACTIONS 1016 [sym_kFar;
   sym_kNear; sym_kSafecall; sym_kAssembler; sym_kNostackframe; sym_kInterrupt; sym_kNoreturn;
   sym_kIocheck; sym_kLocal; sym_kHardfloat; sym_kSoftfloat; sym_kMs_abi_default;
   sym_kMs_abi_cdecl; sym_kSaveregisters; sym_kSysv_abi_default; sym_kSysv_abi_cdecl;
   sym_kVectorcall; sym_kVarargs; sym_kWinapi]; ACTIONS 11651 [sym_kAlias];
   ACTIONS 6705 [sym_kClass; sym_kConst; sym_kConstructor; sym_kDestructor; sym_kEnd;
   sym_kExports; sym_kFinalization; sym_kFunction; sym_kImplementation; sym_kInitialization];
   ACTIONS 1016 [sym_kInline]; ACTIONS 6705 [sym_kInterface; sym_kLabel; sym_kProcedure;
   sym_kProperty; sym_kResourcestring; sym_kThreadvar; sym_kType; sym_kUses; sym_kVar]].

(** State 1884. *)
Definition ts_parse_table_1884 : parse_row :=
  [STATE 2907 [sym__ppIf]; STATE 2561 [sym__procAttributeNoExt];
   STATE 2564 [sym__procAttributesPp]; STATE 15242 [sym_procAttribute];
   STATE 1716 [aux_sym__declProc_repeat1]; ACTIONS 12901 [anon_sym_LBRACK];
   ACTIONS 6498 [aux_sym_ppUsesBlock_token1]; ACTIONS 3 [sym__space];
   ACTIONS 5 [sym_ppDirective]; ACTIONS 3 [sym_comment]; ACTIONS 1016 [sym_kDefault;
   sym_kNodefault]; ACTIONS 11641 [sym_kDispId]; ACTIONS 6491 [sym_kGeneric; sym_kOperator];
   ACTIONS 11643 [sym_kPublic]; ACTIONS 1016 [sym_kStatic; sym_kVirtual; sym_kAbstract;
   sym_kDynamic; sym_kOverride; sym_kOverload; sym_kReintroduce; sym_kStdcall; sym_kCdecl;
   sym_kCppdecl; sym_kPascal; sym_kRegister; sym_kMwpascal]; ACTIONS 11645 [sym_kMessage];
   ACTIONS 11647 [sym_kDeprecated]; ACTIONS 1016 [sym_kExperimental; sym_kPlatform;
   sym_kUnimplemented; sym_kCvar]; ACTIONS 11649 [sym_kExport]; ACTIONS 1016 [sym_kFar;
   sym_kNear; sym_kSafecall; sym_kAssembler; sym_kNostackframe; sym_kInterrupt; sym_kNoreturn;
   sym_kIocheck; sym_kLocal; sym_kHardfloat; sym_kSoftfloat; sym_kMs_abi_default;
   sym_kMs_abi_cdecl; sym_kSaveregisters; sym_kSysv_abi_default; sym_kSysv_abi_cdecl;
   sym_kVectorcall; sym_kVarargs; sym_kWinapi]; ACTIONS 11651 [sym_kAlias];
   ACTIONS 6491 [sym_kClass; sym_kConst; sym_kConstructor; sym_kDestructor; sym_kEnd;
   sym_kExports; sym_kFinalization; sym_kFunction; sym_kImplementation; sym_kInitialization];
   ACTIONS 1016 [sym_kInline]; ACTIONS 6491 [sym_kInterface; sym_kLabel; sym_kProcedure;
   sym_kProperty; sym_kResourcestring; sym_kThreadvar; sym_kType; sym_kUses; sym_kVar]].

(** State 1885. *)
Definition ts_parse_table_1885 : parse_row :=
  [STATE 2907 [sym__ppIf]; STATE 2561 [sym__procAttributeNoExt];
   STATE 2564 [sym__procAttributesPp]; STATE 15242 [sym_procAttribute];
   STATE 1890 [aux_sym__declProc_repeat1]; ACTIONS 12904 [anon_sym_LBRACK];
   ACTIONS 7286 [aux_sym_ppUsesBlock_token1]; ACTIONS 3 [sym__space];
   ACTIONS 5 [sym_ppDirective]; ACTIONS 3 [sym_comment]; ACTIONS 1016 [sym_kDefault;
   sym_kNodefault]; ACTIONS 11641 [sym_kDispId]; ACTIONS 7279 [sym_kGeneric; sym_kOperator];
   ACTIONS 11643 [sym_kPublic]; ACTIONS 1016 [sym_kStatic; sym_kVirtual; sym_kAbstract;
   sym_kDynamic; sym_kOverride; sym_kOverload; sym_kReintroduce; sym_kStdcall; sym_kCdecl;
   sym_kCppdecl; sym_kPascal; sym_kRegister; sym_kMwpascal]; ACTIONS 11645 [sym_kMessage];
   ACTIONS 11647 [sym_kDeprecated]; ACTIONS 1016 [sym_kExperimental; sym_kPlatform;
   sym_kUnimplemented; sym_kCvar]; ACTIONS 11649 [sym_kExport]; ACTIONS 1016 [sym_kFar;
   sym_kNear; sym_kSafecall; sym_kAssembler; sym_kNostackframe; sym_kInterrupt; sym_kNoreturn;
   sym_kIocheck; sym_kLocal; sym_kHardfloat; sym_kSoftfloat; sym_kMs_abi_default;
   sym_kMs_abi_cdecl; sym_kSaveregisters; sym_kSysv_abi_default; sym_kSysv_abi_cdecl;
   sym_kVectorcall; sym_kVarargs; sym_kWinapi]; ACTIONS 11651 [sym_kAlias];
   ACTIONS 7279 [sym_kClass; sym_kConst; sym_kConstructor; sym_kDestructor; sym_kEnd;
   sym_kExports; sym_kFinalization; sym_kFunction; sym_kImplementation; sym_kInitialization];
   ACTIONS 1016 [sym_kInline]; ACTIONS 7279 [sym_kInterface; sym_kLabel; sym_kProcedure;
   sym_kProperty; sym_kResourcestring; sym_kThreadvar; sym_kType; sym_kUses; sym_kVar]].

(** State 1886. *)
Definition ts_parse_table_1886 : parse_row :=
  [STATE 2907 [sym__ppIf]; STATE 2561 [sym__procAttributeNoExt];
   STATE 2564 [sym__procAttributesPp]; STATE 15242 [sym_procAttribute];
   STATE 1716 [aux_sym__declProc_repeat1]; ACTIONS 12907 [anon_sym_LBRACK];
   ACTIONS 6467 [aux_sym_ppUsesBlock_token1]; ACTIONS 3 [sym__space];
   ACTIONS 5 [sym_ppDirective]; ACTIONS 3 [sym_comment]; ACTIONS 1016 [sym_kDefault;
   sym_kNodefault]; ACTIONS 11641 [sym_kDispId]; ACTIONS 6460 [sym_kGeneric; sym_kOperator];
   ACTIONS 11643 [sym_kPublic]; ACTIONS 1016 [sym_kStatic; sym_kVirtual; sym_kAbstract;
   sym_kDynamic; sym_kOverride; sym_kOverload; sym_kReintroduce; sym_kStdcall; sym_kCdecl;
   sym_kCppdecl; sym_kPascal; sym_kRegister; sym_kMwpascal]; ACTIONS 11645 [sym_kMessage];
   ACTIONS 11647 [sym_kDeprecated]; ACTIONS 1016 [sym_kExperimental; sym_kPlatform;
   sym_kUnimplemented; sym_kCvar]; ACTIONS 11649 [sym_kExport]; ACTIONS 1016 [sym_kFar;
   sym_kNear; sym_kSafecall; sym_kAssembler; sym_kNostackframe; sym_kInterrupt; sym_kNoreturn;
   sym_kIocheck; sym_kLocal; sym_kHardfloat; sym_kSoftfloat; sym_kMs_abi_default;
   sym_kMs_abi_cdecl; sym_kSaveregisters; sym_kSysv_abi_default; sym_kSysv_abi_cdecl;
   sym_kVectorcall; sym_kVarargs; sym_kWinapi]; ACTIONS 11651 [sym_kAlias];
   ACTIONS 6460 [sym_kClass; sym_kConst; sym_kConstructor; sym_kDestructor; sym_kEnd;
   sym_kExports; sym_kFinalization; sym_kFunction; sym_kImplementation; sym_kInitialization];
   ACTIONS 1016 [sym_kInline]; ACTIONS 6460 [sym_kInterface; sym_kLabel; sym_kProcedure;
   sym_kProperty; sym_kResourcestring; sym_kThreadvar; sym_kType; sym_kUses; sym_kVar]].

(** State 1887. *)
Definition ts_parse_table_1887 : parse_row :=
  [STATE 2907 [sym__ppIf]; STATE 2561 [sym__procAttributeNoExt];
   STATE 2564 [sym__procAttributesPp]; STATE 15242 [sym_procAttribute];
   STATE 1716 [aux_sym__declProc_repeat1]; ACTIONS 12910 [anon_sym_LBRACK];
   ACTIONS 6889 [aux_sym_ppUsesBlock_token1]; ACTIONS 3 [sym__space];
   ACTIONS 5 [sym_ppDirective]; ACTIONS 3 [sym_comment]; ACTIONS 1016 [sym_kDefault;
   sym_kNodefault]; ACTIONS 11641 [sym_kDispId]; ACTIONS 6882 [sym_kGeneric; sym_kOperator];
   ACTIONS 11643 [sym_kPublic]; ACTIONS 1016 [sym_kStatic; sym_kVirtual; sym_kAbstract;
   sym_kDynamic; sym_kOverride; sym_kOverload; sym_kReintroduce; sym_kStdcall; sym_kCdecl;
   sym_kCppdecl; sym_kPascal; sym_kRegister; sym_kMwpascal]; ACTIONS 11645 [sym_kMessage];
   ACTIONS 11647 [sym_kDeprecated]; ACTIONS 1016 [sym_kExperimental; sym_kPlatform;
   sym_kUnimplemented; sym_kCvar]; ACTIONS 11649 [sym_kExport]; ACTIONS 1016 [sym_kFar;
   sym_kNear; sym_kSafecall; sym_kAssembler; sym_kNostackframe; sym_kInterrupt; sym_kNoreturn;
   sym_kIocheck; sym_kLocal; sym_kHardfloat; sym_kSoftfloat; sym_kMs_abi_default;
   sym_kMs_abi_cdecl; sym_kSaveregisters; sym_kSysv_abi_default; sym_kSysv_abi_cdecl;
   sym_kVectorcall; sym_kVarargs; sym_kWinapi]; ACTIONS 11651 [sym_kAlias];
   ACTIONS 6882 [sym_kClass; sym_kConst; sym_kConstructor; sym_kDestructor; sym_kEnd;
   sym_kExports; sym_kFinalization; sym_kFunction; sym_kImplementation; sym_kInitialization];
   ACTIONS 1016 [sym_kInline]; ACTIONS 6882 [sym_kInterface; sym_kLabel; sym_kProcedure;
   sym_kProperty; sym_kResourcestring; sym_kThreadvar; sym_kType; sym_kUses; sym_kVar]].

(** State 1888. *)
Definition ts_parse_table_1888 : parse_row :=
  [STATE 2907 [sym__ppIf]; STATE 2561 [sym__procAttributeNoExt];
   STATE 2564 [sym__procAttributesPp]; STATE 15242 [sym_procAttribute];
   STATE 1716 [aux_sym__declProc_repeat1]; ACTIONS 12913 [anon_sym_LBRACK];
   ACTIONS 7153 [aux_sym_ppUsesBlock_token1]; ACTIONS 3 [sym__space];
   ACTIONS 5 [sym_ppDirective]; ACTIONS 3 [sym_comment]; ACTIONS 1016 [sym_kDefault;
   sym_kNodefault]; ACTIONS 11641 [sym_kDispId]; ACTIONS 7146 [sym_kGeneric; sym_kOperator];
   ACTIONS 11643 [sym_kPublic]; ACTIONS 1016 [sym_kStatic; sym_kVirtual; sym_kAbstract;
   sym_kDynamic; sym_kOverride; sym_kOverload; sym_kReintroduce; sym_kStdcall; sym_kCdecl;
   sym_kCppdecl; sym_kPascal; sym_kRegister; sym_kMwpascal]; ACTIONS 11645 [sym_kMessage];
   ACTIONS 11647 [sym_kDeprecated]; ACTIONS 1016 [sym_kExperimental; sym_kPlatform;
   sym_kUnimplemented; sym_kCvar]; ACTIONS 11649 [sym_kExport]; ACTIONS 1016 [sym_kFar;
   sym_kNear; sym_kSafecall; sym_kAssembler; sym_kNostackframe; sym_kInterrupt; sym_kNoreturn;
   sym_kIocheck; sym_kLocal; sym_kHardfloat; sym_kSoftfloat; sym_kMs_abi_default;
   sym_kMs_abi_cdecl; sym_kSaveregisters; sym_kSysv_abi_default; sym_kSysv_abi_cdecl;
   sym_kVectorcall; sym_kVarargs; sym_kWinapi]; ACTIONS 11651 [sym_kAlias];
   ACTIONS 7146 [sym_kClass; sym_kConst; sym_kConstructor; sym_kDestructor; sym_kEnd;
   sym_kExports; sym_kFinalization; sym_kFunction; sym_kImplementation; sym_kInitialization];
   ACTIONS 1016 [sym_kInline]; ACTIONS 7146 [sym_kInterface; sym_kLabel; sym_kProcedure;
   sym_kProperty; sym_kResourcestring; sym_kThreadvar; sym_kType; sym_kUses; sym_kVar]].

(** State 1889. *)
Definition ts_parse_table_1889 : parse_row :=
  [STATE 2907 [sym__ppIf]; STATE 2561 [sym__procAttributeNoExt];
   STATE 2564 [sym__procAttributesPp]; STATE 15242 [sym_procAttribute];
   STATE 1891 [aux_sym__declProc_repeat1]; ACTIONS 12916 [anon_sym_LBRACK];
   ACTIONS 4569 [aux_sym_ppUsesBlock_token1]; ACTIONS 3 [sym__space];
   ACTIONS 5 [sym_ppDirective]; ACTIONS 3 [sym_comment]; ACTIONS 1016 [sym_kDefault;
   sym_kNodefault]; ACTIONS 11641 [sym_kDispId]; ACTIONS 4562 [sym_kGeneric; sym_kOperator];
   ACTIONS 11643 [sym_kPublic]; ACTIONS 1016 [sym_kStatic; sym_kVirtual; sym_kAbstract;
   sym_kDynamic; sym_kOverride; sym_kOverload; sym_kReintroduce; sym_kStdcall; sym_kCdecl;
   sym_kCppdecl; sym_kPascal; sym_kRegister; sym_kMwpascal]; ACTIONS 11645 [sym_kMessage];
   ACTIONS 11647 [sym_kDeprecated]; ACTIONS 1016 [sym_kExperimental; sym_kPlatform;
   sym_kUnimplemented; sym_kCvar]; ACTIONS 11649 [sym_kExport]; ACTIONS 1016 [sym_kFar;
   sym_kNear; sym_kSafecall; sym_kAssembler; sym_kNostackframe; sym_kInterrupt; sym_kNoreturn;
   sym_kIocheck; sym_kLocal; sym_kHardfloat; sym_kSoftfloat; sym_kMs_abi_default;
   sym_kMs_abi_cdecl; sym_kSaveregisters; sym_kSysv_abi_default; sym_kSysv_abi_cdecl;
   sym_kVectorcall; sym_kVarargs; sym_kWinapi]; ACTIONS 11651 [sym_kAlias];
   ACTIONS 4562 [sym_kClass; sym_kConst; sym_kConstructor; sym_kDestructor; sym_kEnd;
   sym_kExports; sym_kFinalization; sym_kFunction; sym_kImplementation; sym_kInitialization];
   ACTIONS 1016 [sym_kInline]; ACTIONS 4562 [sym_kInterface; sym_kLabel; sym_kProcedure;
   sym_kProperty; sym_kResourcestring; sym_kThreadvar; sym_kType; sym_kUses; sym_kVar]].

(** State 1890. *)
Definition ts_parse_table_1890 : parse_row :=
  [STATE 2907 [sym__ppIf]; STATE 2561 [sym__procAttributeNoExt];
   STATE 2564 [sym__procAttributesPp]; STATE 15242 [sym_procAttribute];
   STATE 1716 [aux_sym__declProc_repeat1]; ACTIONS 12919 [anon_sym_LBRACK];
   ACTIONS 4641 [aux_sym_ppUsesBlock_token1]; ACTIONS 3 [sym__space];
   ACTIONS 5 [sym_ppDirective]; ACTIONS 3 [sym_comment]; ACTIONS 1016 [sym_kDefault;
   sym_kNodefault]; ACTIONS 11641 [sym_kDispId]; ACTIONS 4634 [sym_kGeneric; sym_kOperator];
   ACTIONS 11643 [sym_kPublic]; ACTIONS 1016 [sym_kStatic; sym_kVirtual; sym_kAbstract;
   sym_kDynamic; sym_kOverride; sym_kOverload; sym_kReintroduce; sym_kStdcall; sym_kCdecl;
   sym_kCppdecl; sym_kPascal; sym_kRegister; sym_kMwpascal]; ACTIONS 11645 [sym_kMessage];
   ACTIONS 11647 [sym_kDeprecated]; ACTIONS 1016 [sym_kExperimental; sym_kPlatform;
   sym_kUnimplemented; sym_kCvar]; ACTIONS 11649 [sym_kExport]; ACTIONS 1016 [sym_kFar;
   sym_kNear; sym_kSafecall; sym_kAssembler; sym_kNostackframe; sym_kInterrupt; sym_kNoreturn;
   sym_kIocheck; sym_kLocal; sym_kHardfloat; sym_kSoftfloat; sym_kMs_abi_default;
   sym_kMs_abi_cdecl; sym_kSaveregisters; sym_kSysv_abi_default; sym_kSysv_abi_cdecl;
   sym_kVectorcall; sym_kVarargs; sym_kWinapi]; ACTIONS 11651 [sym_kAlias];
   ACTIONS 4634 [sym_kClass; sym_kConst; sym_kConstructor; sym_kDestructor; sym_kEnd;
   sym_kExports; sym_kFinalization; sym_kFunction; sym_kImplementation; sym_kInitialization];
   ACTIONS 1016 [sym_kInline]; ACTIONS 4634 [sym_kInterface; sym_kLabel; sym_kProcedure;
   sym_kProperty; sym_kResourcestring; sym_kThreadvar; sym_kType; sym_kUses; sym_kVar]].

(** State 1891. *)
Definition ts_parse_table_1891 : parse_row :=
  [STATE 2907 [sym__ppIf]; STATE 2561 [sym__procAttributeNoExt];
   STATE 2564 [sym__procAttributesPp]; STATE 15242 [sym_procAttribute];
   STATE 1716 [aux_sym__declProc_repeat1]; ACTIONS 12922 [anon_sym_LBRACK];
   ACTIONS 5540 [aux_sym_ppUsesBlock_token1]; ACTIONS 3 [sym__space];
   ACTIONS 5 [sym_ppDirective]; ACTIONS 3 [sym_comment]; ACTIONS 1016 [sym_kDefault;
   sym_kNodefault]; ACTIONS 11641 [sym_kDispId]; ACTIONS 5533 [sym_kGeneric; sym_kOperator];
   ACTIONS 11643 [sym_kPublic]; ACTIONS 1016 [sym_kStatic; sym_kVirtual; sym_kAbstract;
   sym_kDynamic; sym_kOverride; sym_kOverload; sym_kReintroduce; sym_kStdcall; sym_kCdecl;
   sym_kCppdecl; sym_kPascal; sym_kRegister; sym_kMwpascal]; ACTIONS 11645 [sym_kMessage];
   ACTIONS 11647 [sym_kDeprecated]; ACTIONS 1016 [sym_kExperimental; sym_kPlatform;
   sym_kUnimplemented; sym_kCvar]; ACTIONS 11649 [sym_kExport]; ACTIONS 1016 [sym_kFar;
   sym_kNear; sym_kSafecall; sym_kAssembler; sym_kNostackframe; sym_kInterrupt; sym_kNoreturn;
   sym_kIocheck; sym_kLocal; sym_kHardfloat; sym_kSoftfloat; sym_kMs_abi_default;
   sym_kMs_abi_cdecl; sym_kSaveregisters; sym_kSysv_abi_default; sym_kSysv_abi_cdecl;
   sym_kVectorcall; sym_kVarargs; sym_kWinapi]; ACTIONS 11651 [sym_kAlias];
   ACTIONS 5533 [sym_kClass; sym_kConst; sym_kConstructor; sym_kDestructor; sym_kEnd;
   sym_kExports; sym_kFinalization; sym_kFunction; sym_kImplementation; sym_kInitialization];
   ACTIONS 1016 [sym_kInline]; ACTIONS 5533 [sym_kInterface; sym_kLabel; sym_kProcedure;
   sym_kProperty; sym_kResourcestring; sym_kThreadvar; sym_kType; sym_kUses; sym_kVar]].

(** State 1892. *)
Definition ts_parse_table_1892 : parse_row :=
  [STATE 2875 [sym__ppIf]; STATE 2590 [sym__procAttributeNoExt];
   STATE 2591 [sym__procAttributesPp]; STATE 14895 [sym_procAttribute];
   STATE 1894 [aux_sym__declProc_repeat1]; ACTIONS 12925 [anon_sym_LBRACK];
   ACTIONS 1341 [aux_sym_ppUsesBlock_token1]; ACTIONS 3 [sym__space];
   ACTIONS 5 [sym_ppDirective]; ACTIONS 3 [sym_comment]; ACTIONS 1016 [sym_kDefault;
   sym_kNodefault]; ACTIONS 11641 [sym_kDispId]; ACTIONS 1334 [sym_kGeneric; sym_kOperator;
   sym_kPublished]; ACTIONS 1350 [sym_kPublic]; ACTIONS 1334 [sym_kProtected; sym_kPrivate;
   sym_kStrict; sym_kRequired; sym_kOptional]; ACTIONS 1016 [sym_kStatic; sym_kVirtual;
   sym_kAbstract; sym_kDynamic; sym_kOverride; sym_kOverload; sym_kReintroduce; sym_kStdcall;
   sym_kCdecl; sym_kCppdecl; sym_kPascal; sym_kRegister; sym_kMwpascal];
   ACTIONS 11645 [sym_kMessage]; ACTIONS 11647 [sym_kDeprecated];
   ACTIONS 1016 [sym_kExperimental; sym_kPlatform; sym_kUnimplemented; sym_kCvar];
   ACTIONS 11649 [sym_kExport]; ACTIONS 1016 [sym_kFar; sym_kNear; sym_kSafecall; sym_kAssembler;
   sym_kNostackframe; sym_kInterrupt; sym_kNoreturn; sym_kIocheck; sym_kLocal; sym_kHardfloat;
   sym_kSoftfloat; sym_kMs_abi_default; sym_kMs_abi_cdecl; sym_kSaveregisters;
   sym_kSysv_abi_default; sym_kSysv_abi_cdecl; sym_kVectorcall; sym_kVarargs; sym_kWinapi];
   ACTIONS 11651 [sym_kAlias]; ACTIONS 1334 [sym_kCase; sym_kClass; sym_kConst; sym_kConstructor;
   sym_kDestructor; sym_kEnd; sym_kFunction]; ACTIONS 1016 [sym_kInline];
   ACTIONS 1334 [sym_kProcedure; sym_kProperty; sym_kResourcestring; sym_kThreadvar; sym_kType;
   sym_kVar]].

(** State 1893. *)
Definition ts_parse_table_1893 : parse_row :=
  [STATE 2875 [sym__ppIf]; STATE 2590 [sym__procAttributeNoExt];
   STATE 2591 [sym__procAttributesPp]; STATE 14895 [sym_procAttribute];
   STATE 1898 [aux_sym__declProc_repeat1]; ACTIONS 12928 [anon_sym_LBRACK];
   ACTIONS 1390 [aux_sym_ppUsesBlock_token1]; ACTIONS 3 [sym__space];
   ACTIONS 5 [sym_ppDirective]; ACTIONS 3 [sym_comment]; ACTIONS 1016 [sym_kDefault;
   sym_kNodefault]; ACTIONS 11641 [sym_kDispId]; ACTIONS 1383 [sym_kGeneric; sym_kOperator;
   sym_kPublished]; ACTIONS 1399 [sym_kPublic]; ACTIONS 1383 [sym_kProtected; sym_kPrivate;
   sym_kStrict; sym_kRequired; sym_kOptional]; ACTIONS 1016 [sym_kStatic; sym_kVirtual;
   sym_kAbstract; sym_kDynamic; sym_kOverride; sym_kOverload; sym_kReintroduce; sym_kStdcall;
   sym_kCdecl; sym_kCppdecl; sym_kPascal; sym_kRegister; sym_kMwpascal];
   ACTIONS 11645 [sym_kMessage]; ACTIONS 11647 [sym_kDeprecated];
   ACTIONS 1016 [sym_kExperimental; sym_kPlatform; sym_kUnimplemented; sym_kCvar];
   ACTIONS 11649 [sym_kExport]; ACTIONS 1016 [sym_kFar; sym_kNear; sym_kSafecall; sym_kAssembler;
   sym_kNostackframe; sym_kInterrupt; sym_kNoreturn; sym_kIocheck; sym_kLocal; sym_kHardfloat;
   sym_kSoftfloat; sym_kMs_abi_default; sym_kMs_abi_cdecl; sym_kSaveregisters;
   sym_kSysv_abi_default; sym_kSysv_abi_cdecl; sym_kVectorcall; sym_kVarargs; sym_kWinapi];
   ACTIONS 11651 [sym_kAlias]; ACTIONS 1383 [sym_kCase; sym_kClass; sym_kConst; sym_kConstructor;
   sym_kDestructor; sym_kEnd; sym_kFunction]; ACTIONS 1016 [sym_kInline];
   ACTIONS 1383 [sym_kProcedure; sym_kProperty; sym_kResourcestring; sym_kThreadvar; sym_kType;
   sym_kVar]].

(** State 1894. *)
Definition ts_parse_table_1894 : parse_row :=
  [STATE 2875 [sym__ppIf]; STATE 2590 [sym__procAttributeNoExt];
   STATE 2591 [sym__procAttributesPp]; STATE 14895 [sym_procAttribute];
   STATE 1901 [aux_sym__declProc_repeat1]; ACTIONS 12931 [anon_sym_LBRACK];
   ACTIONS 1439 [aux_sym_ppUsesBlock_token1]; ACTIONS 3 [sym__space];
   ACTIONS 5 [sym_ppDirective]; ACTIONS 3 [sym_comment]; ACTIONS 1016 [sym_kDefault;
   sym_kNodefault]; ACTIONS 11641 [sym_kDispId]; ACTIONS 1432 [sym_kGeneric; sym_kOperator;
   sym_kPublished]; ACTIONS 1448 [sym_kPublic]; ACTIONS 1432 [sym_kProtected; sym_kPrivate;
   sym_kStrict; sym_kRequired; sym_kOptional]; ACTIONS 1016 [sym_kStatic; sym_kVirtual;
   sym_kAbstract; sym_kDynamic; sym_kOverride; sym_kOverload; sym_kReintroduce; sym_kStdcall;
   sym_kCdecl; sym_kCppdecl; sym_kPascal; sym_kRegister; sym_kMwpascal];
   ACTIONS 11645 [sym_kMessage]; ACTIONS 11647 [sym_kDeprecated];
   ACTIONS 1016 [sym_kExperimental; sym_kPlatform; sym_kUnimplemented; sym_kCvar];
   ACTIONS 11649 [sym_kExport]; ACTIONS 1016 [sym_kFar; sym_kNear; sym_kSafecall; sym_kAssembler;
   sym_kNostackframe; sym_kInterrupt; sym_kNoreturn; sym_kIocheck; sym_kLocal; sym_kHardfloat;
   sym_kSoftfloat; sym_kMs_abi_default; sym_kMs_abi_cdecl; sym_kSaveregisters;
   sym_kSysv_abi_default; sym_kSysv_abi_cdecl; sym_kVectorcall; sym_kVarargs; sym_kWinapi];
   ACTIONS 11651 [sym_kAlias]; ACTIONS 1432 [sym_kCase; sym_kClass; sym_kConst; sym_kConstructor;
   sym_kDestructor; sym_kEnd; sym_kFunction]; ACTIONS 1016 [sym_kInline];
   ACTIONS 1432 [sym_kProcedure; sym_kProperty; sym_kResourcestring; sym_kThreadvar; sym_kType;
   sym_kVar]].

(** State 1895. *)
Definition ts_parse_table_1895 : parse_row :=
  [STATE 2875 [sym__ppIf]; STATE 2590 [sym__procAttributeNoExt];
   STATE 2591 [sym__procAttributesPp]; STATE 14895 [sym_procAttribute];
   STATE 1903 [aux_sym__declProc_repeat1]; ACTIONS 12934 [anon_sym_LBRACK];
   ACTIONS 1484 [aux_sym_ppUsesBlock_token1]; ACTIONS 3 [sym__space];
   ACTIONS 5 [sym_ppDirective]; ACTIONS 3 [sym_comment]; ACTIONS 1016 [sym_kDefault;
   sym_kNodefault]; ACTIONS 11641 [sym_kDispId]; ACTIONS 1477 [sym_kGeneric; sym_kOperator;
   sym_kPublished]; ACTIONS 1493 [sym_kPublic]; ACTIONS 1477 [sym_kProtected; sym_kPrivate;
   sym_kStrict; sym_kRequired; sym_kOptional]; ACTIONS 1016 [sym_kStatic; sym_kVirtual;
   sym_kAbstract; sym_kDynamic; sym_kOverride; sym_kOverload; sym_kReintroduce; sym_kStdcall;
   sym_kCdecl; sym_kCppdecl; sym_kPascal; sym_kRegister; sym_kMwpascal];
   ACTIONS 11645 [sym_kMessage]; ACTIONS 11647 [sym_kDeprecated];
   ACTIONS 1016 [sym_kExperimental; sym_kPlatform; sym_kUnimplemented; sym_kCvar];
   ACTIONS 11649 [sym_kExport]; ACTIONS 1016 [sym_kFar; sym_kNear; sym_kSafecall; sym_kAssembler;
   sym_kNostackframe; sym_kInterrupt; sym_kNoreturn; sym_kIocheck; sym_kLocal; sym_kHardfloat;
   sym_kSoftfloat; sym_kMs_abi_default; sym_kMs_abi_cdecl; sym_kSaveregisters;
   sym_kSysv_abi_default; sym_kSysv_abi_cdecl; sym_kVectorcall; sym_kVarargs; sym_kWinapi];
   ACTIONS 11651 [sym_kAlias]; ACTIONS 1477 [sym_kCase; sym_kClass; sym_kConst; sym_kConstructor;
   sym_kDestructor; sym_kEnd; sym_kFunction]; ACTIONS 1016 [sym_kInline];
   ACTIONS 1477 [sym_kProcedure; sym_kProperty; sym_kResourcestring; sym_kThreadvar; sym_kType;
   sym_kVar]].

(** State 1896. *)
Definition ts_parse_table_1896 : parse_row :=
  [STATE 2875 [sym__ppIf]; STATE 2590 [sym__procAttributeNoExt];
   STATE 2591 [sym__procAttributesPp]; STATE 14895 [sym_procAttribute];
   STATE 1904 [aux_sym__declProc_repeat1]; ACTIONS 12937 [anon_sym_LBRACK];
   ACTIONS 1515 [aux_sym_ppUsesBlock_token1]; ACTIONS 3 [sym__space];
   ACTIONS 5 [sym_ppDirective]; ACTIONS 3 [sym_comment]; ACTIONS 1016 [sym_kDefault;
   sym_kNodefault]; ACTIONS 11641 [sym_kDispId]; ACTIONS 1508 [sym_kGeneric; sym_kOperator;
   sym_kPublished]; ACTIONS 1524 [sym_kPublic]; ACTIONS 1508 [sym_kProtected; sym_kPrivate;
   sym_kStrict; sym_kRequired; sym_kOptional]; ACTIONS 1016 [sym_kStatic; sym_kVirtual;
   sym_kAbstract; sym_kDynamic; sym_kOverride; sym_kOverload; sym_kReintroduce; sym_kStdcall;
   sym_kCdecl; sym_kCppdecl; sym_kPascal; sym_kRegister; sym_kMwpascal];
   ACTIONS 11645 [sym_kMessage]; ACTIONS 11647 [sym_kDeprecated];
   ACTIONS 1016 [sym_kExperimental; sym_kPlatform; sym_kUnimplemented; sym_kCvar];
   ACTIONS 11649 [sym_kExport]; ACTIONS 1016 [sym_kFar; sym_kNear; sym_kSafecall; sym_kAssembler;
   sym_kNostackframe; sym_kInterrupt; sym_kNoreturn; sym_kIocheck; sym_kLocal; sym_kHardfloat;
   sym_kSoftfloat; sym_kMs_abi_default; sym_kMs_abi_cdecl; sym_kSaveregisters;
   sym_kSysv_abi_default; sym_kSysv_abi_cdecl; sym_kVectorcall; sym_kVarargs; sym_kWinapi];
   ACTIONS 11651 [sym_kAlias]; ACTIONS 1508 [sym_kCase; sym_kClass; sym_kConst; sym_kConstructor;
   sym_kDestructor; sym_kEnd; sym_kFunction]; ACTIONS 1016 [sym_kInline];
   ACTIONS 1508 [sym_kProcedure; sym_kProperty; sym_kResourcestring; sym_kThreadvar; sym_kType;
   sym_kVar]].

(** State 1897. *)
Definition ts_parse_table_1897 : parse_row :=
  [STATE 2875 [sym__ppIf]; STATE 2590 [sym__procAttributeNoExt];
   STATE 2591 [sym__procAttributesPp]; STATE 14895 [sym_procAttribute];
   STATE 1906 [aux_sym__declProc_repeat1]; ACTIONS 12940 [anon_sym_LBRACK];
   ACTIONS 1546 [aux_sym_ppUsesBlock_token1]; ACTIONS 3 [sym__space];
   ACTIONS 5 [sym_ppDirective]; ACTIONS 3 [sym_comment]; ACTIONS 1016 [sym_kDefault;
   sym_kNodefault]; ACTIONS 11641 [sym_kDispId]; ACTIONS 1539 [sym_kGeneric; sym_kOperator;
   sym_kPublished]; ACTIONS 1555 [sym_kPublic]; ACTIONS 1539 [sym_kProtected; sym_kPrivate;
   sym_kStrict; sym_kRequired; sym_kOptional]; ACTIONS 1016 [sym_kStatic; sym_kVirtual;
   sym_kAbstract; sym_kDynamic; sym_kOverride; sym_kOverload; sym_kReintroduce; sym_kStdcall;
   sym_kCdecl; sym_kCppdecl; sym_kPascal; sym_kRegister; sym_kMwpascal];
   ACTIONS 11645 [sym_kMessage]; ACTIONS 11647 [sym_kDeprecated];
   ACTIONS 1016 [sym_kExperimental; sym_kPlatform; sym_kUnimplemented; sym_kCvar];
   ACTIONS 11649 [sym_kExport]; ACTIONS 1016 [sym_kFar; sym_kNear; sym_kSafecall; sym_kAssembler;
   sym_kNostackframe; sym_kInterrupt; sym_kNoreturn; sym_kIocheck; sym_kLocal; sym_kHardfloat;
   sym_kSoftfloat; sym_kMs_abi_default; sym_kMs_abi_cdecl; sym_kSaveregisters;
   sym_kSysv_abi_default; sym_kSysv_abi_cdecl; sym_kVectorcall; sym_kVarargs; sym_kWinapi];
   ACTIONS 11651 [sym_kAlias]; ACTIONS 1539 [sym_kCase; sym_kClass; sym_kConst; sym_kConstructor;
   sym_kDestructor; sym_kEnd; sym_kFunction]; ACTIONS 1016 [sym_kInline];
   ACTIONS 1539 [sym_kProcedure; sym_kProperty; sym_kResourcestring; sym_kThreadvar; sym_kType;
   sym_kVar]].

(** State 1898. *)
Definition ts_parse_table_1898 : parse_row :=
  [STATE 2875 [sym__ppIf]; STATE 2590 [sym__procAttributeNoExt];
   STATE 2591 [sym__procAttributesPp]; STATE 14895 [sym_procAttribute];
   STATE 1901 [aux_sym__declProc_repeat1]; ACTIONS 12943 [anon_sym_LBRACK];
   ACTIONS 1579 [aux_sym_ppUsesBlock_token1]; ACTIONS 3 [sym__space];
   ACTIONS 5 [sym_ppDirective]; ACTIONS 3 [sym_comment]; ACTIONS 1016 [sym_kDefault;
   sym_kNodefault]; ACTIONS 11641 [sym_kDispId]; ACTIONS 1572 [sym_kGeneric; sym_kOperator;
   sym_kPublished]; ACTIONS 1588 [sym_kPublic]; ACTIONS 1572 [sym_kProtected; sym_kPrivate;
   sym_kStrict; sym_kRequired; sym_kOptional]; ACTIONS 1016 [sym_kStatic; sym_kVirtual;
   sym_kAbstract; sym_kDynamic; sym_kOverride; sym_kOverload; sym_kReintroduce; sym_kStdcall;
   sym_kCdecl; sym_kCppdecl; sym_kPascal; sym_kRegister; sym_kMwpascal];
   ACTIONS 11645 [sym_kMessage]; ACTIONS 11647 [sym_kDeprecated];
   ACTIONS 1016 [sym_kExperimental; sym_kPlatform; sym_kUnimplemented; sym_kCvar];
   ACTIONS 11649 [sym_kExport]; ACTIONS 1016 [sym_kFar; sym_kNear; sym_kSafecall; sym_kAssembler;
   sym_kNostackframe; sym_kInterrupt; sym_kNoreturn; sym_kIocheck; sym_kLocal; sym_kHardfloat;
   sym_kSoftfloat; sym_kMs_abi_default; sym_kMs_abi_cdecl; sym_kSaveregisters;
   sym_kSysv_abi_default; sym_kSysv_abi_cdecl; sym_kVectorcall; sym_kVarargs; sym_kWinapi];
   ACTIONS 11651 [sym_kAlias]; ACTIONS 1572 [sym_kCase; sym_kClass; sym_kConst; sym_kConstructor;
   sym_kDestructor; sym_kEnd; sym_kFunction]; ACTIONS 1016 [sym_kInline];
   ACTIONS 1572 [sym_kProcedure; sym_kProperty; sym_kResourcestring; sym_kThreadvar; sym_kType;
   sym_kVar]].

(** State 1899. *)
Definition ts_parse_table_1899 : parse_row :=
  [STATE 2875 [sym__ppIf]; STATE 2590 [sym__procAttributeNoExt];
   STATE 2591 [sym__procAttributesPp]; STATE 14895 [sym_procAttribute];
   STATE 1910 [aux_sym__declProc_repeat1]; ACTIONS 12946 [anon_sym_LBRACK];
   ACTIONS 1624 [aux_sym_ppUsesBlock_token1]; ACTIONS 3 [sym__space];
   ACTIONS 5 [sym_ppDirective]; ACTIONS 3 [sym_comment]; ACTIONS 1016 [sym_kDefault;
   sym_kNodefault]; ACTIONS 11641 [sym_kDispId]; ACTIONS 1617 [sym_kGeneric; sym_kOperator;
   sym_kPublished]; ACTIONS 1633 [sym_kPublic]; ACTIONS 1617 [sym_kProtected; sym_kPrivate;
   sym_kStrict; sym_kRequired; sym_kOptional]; ACTIONS 1016 [sym_kStatic; sym_kVirtual;
   sym_kAbstract; sym_kDynamic; sym_kOverride; sym_kOverload; sym_kReintroduce; sym_kStdcall;
   sym_kCdecl; sym_kCppdecl; sym_kPascal; sym_kRegister; sym_kMwpascal];
   ACTIONS 11645 [sym_kMessage]; ACTIONS 11647 [sym_kDeprecated];
   ACTIONS 1016 [sym_kExperimental; sym_kPlatform; sym_kUnimplemented; sym_kCvar];
   ACTIONS 11649 [sym_kExport]; ACTIONS 1016 [sym_kFar; sym_kNear; sym_kSafecall; sym_kAssembler;
   sym_kNostackframe; sym_kInterrupt; sym_kNoreturn; sym_kIocheck; sym_kLocal; sym_kHardfloat;
   sym_kSoftfloat; sym_kMs_abi_default; sym_kMs_abi_cdecl; sym_kSaveregisters;
   sym_kSysv_abi_default; sym_kSysv_abi_cdecl; sym_kVectorcall; sym_kVarargs; sym_kWinapi];
   ACTIONS 11651 [sym_kAlias]; ACTIONS 1617 [sym_kCase; sym_kClass; sym_kConst; sym_kConstructor;
   sym_kDestructor; sym_kEnd; sym_kFunction]; ACTIONS 1016 [sym_kInline];
   ACTIONS 1617 [sym_kProcedure; sym_kProperty; sym_kResourcestring; sym_kThreadvar; sym_kType;
   sym_kVar]].

(** State 1900. *)
Definition ts_parse_table_1900 : parse_row :=
  [STATE 2875 [sym__ppIf]; STATE 2590 [sym__procAttributeNoExt];
   STATE 2591 [sym__procAttributesPp]; STATE 14895 [sym_procAttribute];
   STATE 1911 [aux_sym__declProc_repeat1]; ACTIONS 12949 [anon_sym_LBRACK];
   ACTIONS 1655 [aux_sym_ppUsesBlock_token1]; ACTIONS 3 [sym__space];
   ACTIONS 5 [sym_ppDirective]; ACTIONS 3 [sym_comment]; ACTIONS 1016 [sym_kDefault;
   sym_kNodefault]; ACTIONS 11641 [sym_kDispId]; ACTIONS 1648 [sym_kGeneric; sym_kOperator;
   sym_kPublished]; ACTIONS 1664 [sym_kPublic]; ACTIONS 1648 [sym_kProtected; sym_kPrivate;
   sym_kStrict; sym_kRequired; sym_kOptional]; ACTIONS 1016 [sym_kStatic; sym_kVirtual;
   sym_kAbstract; sym_kDynamic; sym_kOverride; sym_kOverload; sym_kReintroduce; sym_kStdcall;
   sym_kCdecl; sym_kCppdecl; sym_kPascal; sym_kRegister; sym_kMwpascal];
   ACTIONS 11645 [sym_kMessage]; ACTIONS 11647 [sym_kDeprecated];
   ACTIONS 1016 [sym_kExperimental; sym_kPlatform; sym_kUnimplemented; sym_kCvar];
   ACTIONS 11649 [sym_kExport]; ACTIONS 1016 [sym_kFar; sym_kNear; sym_kSafecall; sym_kAssembler;
   sym_kNostackframe; sym_kInterrupt; sym_kNoreturn; sym_kIocheck; sym_kLocal; sym_kHardfloat;
   sym_kSoftfloat; sym_kMs_abi_default; sym_kMs_abi_cdecl; sym_kSaveregisters;
   sym_kSysv_abi_default; sym_kSysv_abi_cdecl; sym_kVectorcall; sym_kVarargs; sym_kWinapi];
   ACTIONS 11651 [sym_kAlias]; ACTIONS 1648 [sym_kCase; sym_kClass; sym_kConst; sym_kConstructor;
   sym_kDestructor; sym_kEnd; sym_kFunction]; ACTIONS 1016 [sym_kInline];
   ACTIONS 1648 [sym_kProcedure; sym_kProperty; sym_kResourcestring; sym_kThreadvar; sym_kType;
   sym_kVar]].

(** State 1901. *)
Definition ts_parse_table_1901 : parse_row :=
  [STATE 2875 [sym__ppIf]; STATE 2590 [sym__procAttributeNoExt];
   STATE 2591 [sym__procAttributesPp]; STATE 14895 [sym_procAttribute];
   STATE 1901 [aux_sym__declProc_repeat1]; ACTIONS 12952 [anon_sym_LBRACK];
   ACTIONS 1180 [aux_sym_ppUsesBlock_token1]; ACTIONS 3 [sym__space];
   ACTIONS 5 [sym_ppDirective]; ACTIONS 3 [sym_comment]; ACTIONS 1183 [sym_kDefault;
   sym_kNodefault]; ACTIONS 1186 [sym_kDispId]; ACTIONS 1173 [sym_kGeneric; sym_kOperator;
   sym_kPublished]; ACTIONS 1189 [sym_kPublic]; ACTIONS 1173 [sym_kProtected; sym_kPrivate;
   sym_kStrict; sym_kRequired; sym_kOptional]; ACTIONS 1183 [sym_kStatic; sym_kVirtual;
   sym_kAbstract; sym_kDynamic; sym_kOverride; sym_kOverload; sym_kReintroduce; sym_kStdcall;
   sym_kCdecl; sym_kCppdecl; sym_kPascal; sym_kRegister; sym_kMwpascal];
   ACTIONS 1192 [sym_kMessage]; ACTIONS 1195 [sym_kDeprecated]; ACTIONS 1183 [sym_kExperimental;
   sym_kPlatform; sym_kUnimplemented; sym_kCvar]; ACTIONS 1198 [sym_kExport];
   ACTIONS 1183 [sym_kFar; sym_kNear; sym_kSafecall; sym_kAssembler; sym_kNostackframe;
   sym_kInterrupt; sym_kNoreturn; sym_kIocheck; sym_kLocal; sym_kHardfloat; sym_kSoftfloat;
   sym_kMs_abi_default; sym_kMs_abi_cdecl; sym_kSaveregisters; sym_kSysv_abi_default;
   sym_kSysv_abi_cdecl; sym_kVectorcall; sym_kVarargs; sym_kWinapi]; ACTIONS 1201 [sym_kAlias];
   ACTIONS 1173 [sym_kCase; sym_kClass; sym_kConst; sym_kConstructor; sym_kDestructor; sym_kEnd;
   sym_kFunction]; ACTIONS 1183 [sym_kInline]; ACTIONS 1173 [sym_kProcedure; sym_kProperty;
   sym_kResourcestring; sym_kThreadvar; sym_kType; sym_kVar]].

(** State 1902. *)
Definition ts_parse_table_1902 : parse_row :=
  [STATE 2875 [sym__ppIf]; STATE 2590 [sym__procAttributeNoExt];
   STATE 2591 [sym__procAttributesPp]; STATE 14895 [sym_procAttribute];
   STATE 1688 [aux_sym__declProc_repeat1]; ACTIONS 12955 [anon_sym_LBRACK];
   ACTIONS 1734 [aux_sym_ppUsesBlock_token1]; ACTIONS 3 [sym__space];
   ACTIONS 5 [sym_ppDirective]; ACTIONS 3 [sym_comment]; ACTIONS 1016 [sym_kDefault;
   sym_kNodefault]; ACTIONS 11641 [sym_kDispId]; ACTIONS 1727 [sym_kGeneric; sym_kOperator;
   sym_kPublished]; ACTIONS 1743 [sym_kPublic]; ACTIONS 1727 [sym_kProtected; sym_kPrivate;
   sym_kStrict; sym_kRequired; sym_kOptional]; ACTIONS 1016 [sym_kStatic; sym_kVirtual;
   sym_kAbstract; sym_kDynamic; sym_kOverride; sym_kOverload; sym_kReintroduce; sym_kStdcall;
   sym_kCdecl; sym_kCppdecl; sym_kPascal; sym_kRegister; sym_kMwpascal];
   ACTIONS 11645 [sym_kMessage]; ACTIONS 11647 [sym_kDeprecated];
   ACTIONS 1016 [sym_kExperimental; sym_kPlatform; sym_kUnimplemented; sym_kCvar];
   ACTIONS 11649 [sym_kExport]; ACTIONS 1016 [sym_kFar; sym_kNear; sym_kSafecall; sym_kAssembler;
   sym_kNostackframe; sym_kInterrupt; sym_kNoreturn; sym_kIocheck; sym_kLocal; sym_kHardfloat;
   sym_kSoftfloat; sym_kMs_abi_default; sym_kMs_abi_cdecl; sym_kSaveregisters;
   sym_kSysv_abi_default; sym_kSysv_abi_cdecl; sym_kVectorcall; sym_kVarargs; sym_kWinapi];
   ACTIONS 11651 [sym_kAlias]; ACTIONS 1727 [sym_kCase; sym_kClass; sym_kConst; sym_kConstructor;
   sym_kDestructor; sym_kEnd; sym_kFunction]; ACTIONS 1016 [sym_kInline];
   ACTIONS 1727 [sym_kProcedure; sym_kProperty; sym_kResourcestring; sym_kThreadvar; sym_kType;
   sym_kVar]].

(** State 1903. *)
Definition ts_parse_table_1903 : parse_row :=
  [STATE 2875 [sym__ppIf]; STATE 2590 [sym__procAttributeNoExt];
   STATE 2591 [sym__procAttributesPp]; STATE 14895 [sym_procAttribute];
   STATE 1901 [aux_sym__declProc_repeat1]; ACTIONS 12958 [anon_sym_LBRACK];
   ACTIONS 1765 [aux_sym_ppUsesBlock_token1]; ACTIONS 3 [sym__space];
   ACTIONS 5 [sym_ppDirective]; ACTIONS 3 [sym_comment]; ACTIONS 1016 [sym_kDefault;
   sym_kNodefault]; ACTIONS 11641 [sym_kDispId]; ACTIONS 1758 [sym_kGeneric; sym_kOperator;
   sym_kPublished]; ACTIONS 1774 [sym_kPublic]; ACTIONS 1758 [sym_kProtected; sym_kPrivate;
   sym_kStrict; sym_kRequired; sym_kOptional]; ACTIONS 1016 [sym_kStatic; sym_kVirtual;
   sym_kAbstract; sym_kDynamic; sym_kOverride; sym_kOverload; sym_kReintroduce; sym_kStdcall;
   sym_kCdecl; sym_kCppdecl; sym_kPascal; sym_kRegister; sym_kMwpascal];
   ACTIONS 11645 [sym_kMessage]; ACTIONS 11647 [sym_kDeprecated];
   ACTIONS 1016 [sym_kExperimental; sym_kPlatform; sym_kUnimplemented; sym_kCvar];
   ACTIONS 11649 [sym_kExport]; ACTIONS 1016 [sym_kFar; sym_kNear; sym_kSafecall; sym_kAssembler;
   sym_kNostackframe; sym_kInterrupt; sym_kNoreturn; sym_kIocheck; sym_kLocal; sym_kHardfloat;
   sym_kSoftfloat; sym_kMs_abi_default; sym_kMs_abi_cdecl; sym_kSaveregisters;
   sym_kSysv_abi_default; sym_kSysv_abi_cdecl; sym_kVectorcall; sym_kVarargs; sym_kWinapi];
   ACTIONS 11651 [sym_kAlias]; ACTIONS 1758 [sym_kCase; sym_kClass; sym_kConst; sym_kConstructor;
   sym_kDestructor; sym_kEnd; sym_kFunction]; ACTIONS 1016 [sym_kInline];
   ACTIONS 1758 [sym_kProcedure; sym_kProperty; sym_kResourcestring; sym_kThreadvar; sym_kType;
   sym_kVar]].

(** State 1904. *)
Definition ts_parse_table_1904 : parse_row :=
  [STATE 2875 [sym__ppIf]; STATE 2590 [sym__procAttributeNoExt];
   STATE 2591 [sym__procAttributesPp]; STATE 14895 [sym_procAttribute];
   STATE 1901 [aux_sym__declProc_repeat1]; ACTIONS 12961 [anon_sym_LBRACK];
   ACTIONS 1798 [aux_sym_ppUsesBlock_token1]; ACTIONS 3 [sym__space];
   ACTIONS 5 [sym_ppDirective]; ACTIONS 3 [sym_comment]; ACTIONS 1016 [sym_kDefault;
   sym_kNodefault]; ACTIONS 11641 [sym_kDispId]; ACTIONS 1791 [sym_kGeneric; sym_kOperator;
   sym_kPublished]; ACTIONS 1807 [sym_kPublic]; ACTIONS 1791 [sym_kProtected; sym_kPrivate;
   sym_kStrict; sym_kRequired; sym_kOptional]; ACTIONS 1016 [sym_kStatic; sym_kVirtual;
   sym_kAbstract; sym_kDynamic; sym_kOverride; sym_kOverload; sym_kReintroduce; sym_kStdcall;
   sym_kCdecl; sym_kCppdecl; sym_kPascal; sym_kRegister; sym_kMwpascal];
   ACTIONS 11645 [sym_kMessage]; ACTIONS 11647 [sym_kDeprecated];
   ACTIONS 1016 [sym_kExperimental; sym_kPlatform; sym_kUnimplemented; sym_kCvar];
   ACTIONS 11649 [sym_kExport]; ACTIONS 1016 [sym_kFar; sym_kNear; sym_kSafecall; sym_kAssembler;
   sym_kNostackframe; sym_kInterrupt; sym_kNoreturn; sym_kIocheck; sym_kLocal; sym_kHardfloat;
   sym_kSoftfloat; sym_kMs_abi_default; sym_kMs_abi_cdecl; sym_kSaveregisters;
   sym_kSysv_abi_default; sym_kSysv_abi_cdecl; sym_kVectorcall; sym_kVarargs; sym_kWinapi];
   ACTIONS 11651 [sym_kAlias]; ACTIONS 1791 [sym_kCase; sym_kClass; sym_kConst; sym_kConstructor;
   sym_kDestructor; sym_kEnd; sym_kFunction]; ACTIONS 1016 [sym_kInline];
   ACTIONS 1791 [sym_kProcedure; sym_kProperty; sym_kResourcestring; sym_kThreadvar; sym_kType;
   sym_kVar]].

(** State 1905. *)
Definition ts_parse_table_1905 : parse_row :=
  [STATE 2875 [sym__ppIf]; STATE 2590 [sym__procAttributeNoExt];
   STATE 2591 [sym__procAttributesPp]; STATE 14895 [sym_procAttribute];
   STATE 1691 [aux_sym__declProc_repeat1]; ACTIONS 12964 [anon_sym_LBRACK];
   ACTIONS 1843 [aux_sym_ppUsesBlock_token1]; ACTIONS 3 [sym__space];
   ACTIONS 5 [sym_ppDirective]; ACTIONS 3 [sym_comment]; ACTIONS 1016 [sym_kDefault;
   sym_kNodefault]; ACTIONS 11641 [sym_kDispId]; ACTIONS 1836 [sym_kGeneric; sym_kOperator;
   sym_kPublished]; ACTIONS 1852 [sym_kPublic]; ACTIONS 1836 [sym_kProtected; sym_kPrivate;
   sym_kStrict; sym_kRequired; sym_kOptional]; ACTIONS 1016 [sym_kStatic; sym_kVirtual;
   sym_kAbstract; sym_kDynamic; sym_kOverride; sym_kOverload; sym_kReintroduce; sym_kStdcall;
   sym_kCdecl; sym_kCppdecl; sym_kPascal; sym_kRegister; sym_kMwpascal];
   ACTIONS 11645 [sym_kMessage]; ACTIONS 11647 [sym_kDeprecated];
   ACTIONS 1016 [sym_kExperimental; sym_kPlatform; sym_kUnimplemented; sym_kCvar];
   ACTIONS 11649 [sym_kExport]; ACTIONS 1016 [sym_kFar; sym_kNear; sym_kSafecall; sym_kAssembler;
   sym_kNostackframe; sym_kInterrupt; sym_kNoreturn; sym_kIocheck; sym_kLocal; sym_kHardfloat;
   sym_kSoftfloat; sym_kMs_abi_default; sym_kMs_abi_cdecl; sym_kSaveregisters;
   sym_kSysv_abi_default; sym_kSysv_abi_cdecl; sym_kVectorcall; sym_kVarargs; sym_kWinapi];
   ACTIONS 11651 [sym_kAlias]; ACTIONS 1836 [sym_kCase; sym_kClass; sym_kConst; sym_kConstructor;
   sym_kDestructor; sym_kEnd; sym_kFunction]; ACTIONS 1016 [sym_kInline];
   ACTIONS 1836 [sym_kProcedure; sym_kProperty; sym_kResourcestring; sym_kThreadvar; sym_kType;
   sym_kVar]].

(** State 1906. *)
Definition ts_parse_table_1906 : parse_row :=
  [STATE 2875 [sym__ppIf]; STATE 2590 [sym__procAttributeNoExt];
   STATE 2591 [sym__procAttributesPp]; STATE 14895 [sym_procAttribute];
   STATE 1901 [aux_sym__declProc_repeat1]; ACTIONS 12967 [anon_sym_LBRACK];
   ACTIONS 1890 [aux_sym_ppUsesBlock_token1]; ACTIONS 3 [sym__space];
   ACTIONS 5 [sym_ppDirective]; ACTIONS 3 [sym_comment]; ACTIONS 1016 [sym_kDefault;
   sym_kNodefault]; ACTIONS 11641 [sym_kDispId]; ACTIONS 1883 [sym_kGeneric; sym_kOperator;
   sym_kPublished]; ACTIONS 1899 [sym_kPublic]; ACTIONS 1883 [sym_kProtected; sym_kPrivate;
   sym_kStrict; sym_kRequired; sym_kOptional]; ACTIONS 1016 [sym_kStatic; sym_kVirtual;
   sym_kAbstract; sym_kDynamic; sym_kOverride; sym_kOverload; sym_kReintroduce; sym_kStdcall;
   sym_kCdecl; sym_kCppdecl; sym_kPascal; sym_kRegister; sym_kMwpascal];
   ACTIONS 11645 [sym_kMessage]; ACTIONS 11647 [sym_kDeprecated];
   ACTIONS 1016 [sym_kExperimental; sym_kPlatform; sym_kUnimplemented; sym_kCvar];
   ACTIONS 11649 [sym_kExport]; ACTIONS 1016 [sym_kFar; sym_kNear; sym_kSafecall; sym_kAssembler;
   sym_kNostackframe; sym_kInterrupt; sym_kNoreturn; sym_kIocheck; sym_kLocal; sym_kHardfloat;
   sym_kSoftfloat; sym_kMs_abi_default; sym_kMs_abi_cdecl; sym_kSaveregisters;
   sym_kSysv_abi_default; sym_kSysv_abi_cdecl; sym_kVectorcall; sym_kVarargs; sym_kWinapi];
   ACTIONS 11651 [sym_kAlias]; ACTIONS 1883 [sym_kCase; sym_kClass; sym_kConst; sym_kConstructor;
   sym_kDestructor; sym_kEnd; sym_kFunction]; ACTIONS 1016 [sym_kInline];
   ACTIONS 1883 [sym_kProcedure; sym_kProperty; sym_kResourcestring; sym_kThreadvar; sym_kType;
   sym_kVar]].

(** State 1907. *)
Definition ts_parse_table_1907 : parse_row :=
  [STATE 2875 [sym__ppIf]; STATE 2590 [sym__procAttributeNoExt];
   STATE 2591 [sym__procAttributesPp]; STATE 14895 [sym_procAttribute];
   STATE 1693 [aux_sym__declProc_repeat1]; ACTIONS 12970 [anon_sym_LBRACK];
   ACTIONS 1921 [aux_sym_ppUsesBlock_token1]; ACTIONS 3 [sym__space];
   ACTIONS 5 [sym_ppDirective]; ACTIONS 3 [sym_comment]; ACTIONS 1016 [sym_kDefault;
   sym_kNodefault]; ACTIONS 11641 [sym_kDispId]; ACTIONS 1914 [sym_kGeneric; sym_kOperator;
   sym_kPublished]; ACTIONS 1930 [sym_kPublic]; ACTIONS 1914 [sym_kProtected; sym_kPrivate;
   sym_kStrict; sym_kRequired; sym_kOptional]; ACTIONS 1016 [sym_kStatic; sym_kVirtual;
   sym_kAbstract; sym_kDynamic; sym_kOverride; sym_kOverload; sym_kReintroduce; sym_kStdcall;
   sym_kCdecl; sym_kCppdecl; sym_kPascal; sym_kRegister; sym_kMwpascal];
   ACTIONS 11645 [sym_kMessage]; ACTIONS 11647 [sym_kDeprecated];
   ACTIONS 1016 [sym_kExperimental; sym_kPlatform; sym_kUnimplemented; sym_kCvar];
   ACTIONS 11649 [sym_kExport]; ACTIONS 1016 [sym_kFar; sym_kNear; sym_kSafecall; sym_kAssembler;
   sym_kNostackframe; sym_kInterrupt; sym_kNoreturn; sym_kIocheck; sym_kLocal; sym_kHardfloat;
   sym_kSoftfloat; sym_kMs_abi_default; sym_kMs_abi_cdecl; sym_kSaveregisters;
   sym_kSysv_abi_default; sym_kSysv_abi_cdecl; sym_kVectorcall; sym_kVarargs; sym_kWinapi];
   ACTIONS 11651 [sym_kAlias]; ACTIONS 1914 [sym_kCase; sym_kClass; sym_kConst; sym_kConstructor;
   sym_kDestructor; sym_kEnd; sym_kFunction]; ACTIONS 1016 [sym_kInline];
   ACTIONS 1914 [sym_kProcedure; sym_kProperty; sym_kResourcestring; sym_kThreadvar; sym_kType;
   sym_kVar]].

(** State 1908. *)
Definition ts_parse_table_1908 : parse_row :=
  [STATE 2875 [sym__ppIf]; STATE 2590 [sym__procAttributeNoExt];
   STATE 2591 [sym__procAttributesPp]; STATE 14895 [sym_procAttribute];
   STATE 1694 [aux_sym__declProc_repeat1]; ACTIONS 12973 [anon_sym_LBRACK];
   ACTIONS 1954 [aux_sym_ppUsesBlock_token1]; ACTIONS 3 [sym__space];
   ACTIONS 5 [sym_ppDirective]; ACTIONS 3 [sym_comment]; ACTIONS 1016 [sym_kDefault;
   sym_kNodefault]; ACTIONS 11641 [sym_kDispId]; ACTIONS 1947 [sym_kGeneric; sym_kOperator;
   sym_kPublished]; ACTIONS 1963 [sym_kPublic]; ACTIONS 1947 [sym_kProtected; sym_kPrivate;
   sym_kStrict; sym_kRequired; sym_kOptional]; ACTIONS 1016 [sym_kStatic; sym_kVirtual;
   sym_kAbstract; sym_kDynamic; sym_kOverride; sym_kOverload; sym_kReintroduce; sym_kStdcall;
   sym_kCdecl; sym_kCppdecl; sym_kPascal; sym_kRegister; sym_kMwpascal];
   ACTIONS 11645 [sym_kMessage]; ACTIONS 11647 [sym_kDeprecated];
   ACTIONS 1016 [sym_kExperimental; sym_kPlatform; sym_kUnimplemented; sym_kCvar];
   ACTIONS 11649 [sym_kExport]; ACTIONS 1016 [sym_kFar; sym_kNear; sym_kSafecall; sym_kAssembler;
   sym_kNostackframe; sym_kInterrupt; sym_kNoreturn; sym_kIocheck; sym_kLocal; sym_kHardfloat;
   sym_kSoftfloat; sym_kMs_abi_default; sym_kMs_abi_cdecl; sym_kSaveregisters;
   sym_kSysv_abi_default; sym_kSysv_abi_cdecl; sym_kVectorcall; sym_kVarargs; sym_kWinapi];
   ACTIONS 11651 [sym_kAlias]; ACTIONS 1947 [sym_kCase; sym_kClass; sym_kConst; sym_kConstructor;
   sym_kDestructor; sym_kEnd; sym_kFunction]; ACTIONS 1016 [sym_kInline];
   ACTIONS 1947 [sym_kProcedure; sym_kProperty; sym_kResourcestring; sym_kThreadvar; sym_kType;
   sym_kVar]].

(** State 1909. *)
Definition ts_parse_table_1909 : parse_row :=
  [STATE 2875 [sym__ppIf]; STATE 2590 [sym__procAttributeNoExt];
   STATE 2591 [sym__procAttributesPp]; STATE 14895 [sym_procAttribute];
   STATE 1696 [aux_sym__declProc_repeat1]; ACTIONS 12976 [anon_sym_LBRACK];
   ACTIONS 1999 [aux_sym_ppUsesBlock_token1]; ACTIONS 3 [sym__space];
   ACTIONS 5 [sym_ppDirective]; ACTIONS 3 [sym_comment]; ACTIONS 1016 [sym_kDefault;
   sym_kNodefault]; ACTIONS 11641 [sym_kDispId]; ACTIONS 1992 [sym_kGeneric; sym_kOperator;
   sym_kPublished]; ACTIONS 2008 [sym_kPublic]; ACTIONS 1992 [sym_kProtected; sym_kPrivate;
   sym_kStrict; sym_kRequired; sym_kOptional]; ACTIONS 1016 [sym_kStatic; sym_kVirtual;
   sym_kAbstract; sym_kDynamic; sym_kOverride; sym_kOverload; sym_kReintroduce; sym_kStdcall;
   sym_kCdecl; sym_kCppdecl; sym_kPascal; sym_kRegister; sym_kMwpascal];
   ACTIONS 11645 [sym_kMessage]; ACTIONS 11647 [sym_kDeprecated];
   ACTIONS 1016 [sym_kExperimental; sym_kPlatform; sym_kUnimplemented; sym_kCvar];
   ACTIONS 11649 [sym_kExport]; ACTIONS 1016 [sym_kFar; sym_kNear; sym_kSafecall; sym_kAssembler;
   sym_kNostackframe; sym_kInterrupt; sym_kNoreturn; sym_kIocheck; sym_kLocal; sym_kHardfloat;
   sym_kSoftfloat; sym_kMs_abi_default; sym_kMs_abi_cdecl; sym_kSaveregisters;
   sym_kSysv_abi_default; sym_kSysv_abi_cdecl; sym_kVectorcall; sym_kVarargs; sym_kWinapi];
   ACTIONS 11651 [sym_kAlias]; ACTIONS 1992 [sym_kCase; sym_kClass; sym_kConst; sym_kConstructor;
   sym_kDestructor; sym_kEnd; sym_kFunction]; ACTIONS 1016 [sym_kInline];
   ACTIONS 1992 [sym_kProcedure; sym_kProperty; sym_kResourcestring; sym_kThreadvar; sym_kType;
   sym_kVar]].

(** State 1910. *)
Definition ts_parse_table_1910 : parse_row :=
  [STATE 2875 [sym__ppIf]; STATE 2590 [sym__procAttributeNoExt];
   STATE 2591 [sym__procAttributesPp]; STATE 14895 [sym_procAttribute];
   STATE 1901 [aux_sym__declProc_repeat1]; ACTIONS 12979 [anon_sym_LBRACK];
   ACTIONS 2030 [aux_sym_ppUsesBlock_token1]; ACTIONS 3 [sym__space];
   ACTIONS 5 [sym_ppDirective]; ACTIONS 3 [sym_comment]; ACTIONS 1016 [sym_kDefault;
   sym_kNodefault]; ACTIONS 11641 [sym_kDispId]; ACTIONS 2023 [sym_kGeneric; sym_kOperator;
   sym_kPublished]; ACTIONS 2039 [sym_kPublic]; ACTIONS 2023 [sym_kProtected; sym_kPrivate;
   sym_kStrict; sym_kRequired; sym_kOptional]; ACTIONS 1016 [sym_kStatic; sym_kVirtual;
   sym_kAbstract; sym_kDynamic; sym_kOverride; sym_kOverload; sym_kReintroduce; sym_kStdcall;
   sym_kCdecl; sym_kCppdecl; sym_kPascal; sym_kRegister; sym_kMwpascal];
   ACTIONS 11645 [sym_kMessage]; ACTIONS 11647 [sym_kDeprecated];
   ACTIONS 1016 [sym_kExperimental; sym_kPlatform; sym_kUnimplemented; sym_kCvar];
   ACTIONS 11649 [sym_kExport]; ACTIONS 1016 [sym_kFar; sym_kNear; sym_kSafecall; sym_kAssembler;
   sym_kNostackframe; sym_kInterrupt; sym_kNoreturn; sym_kIocheck; sym_kLocal; sym_kHardfloat;
   sym_kSoftfloat; sym_kMs_abi_default; sym_kMs_abi_cdecl; sym_kSaveregisters;
   sym_kSysv_abi_default; sym_kSysv_abi_cdecl; sym_kVectorcall; sym_kVarargs; sym_kWinapi];
   ACTIONS 11651 [sym_kAlias]; ACTIONS 2023 [sym_kCase; sym_kClass; sym_kConst; sym_kConstructor;
   sym_kDestructor; sym_kEnd; sym_kFunction]; ACTIONS 1016 [sym_kInline];
   ACTIONS 2023 [sym_kProcedure; sym_kProperty; sym_kResourcestring; sym_kThreadvar; sym_kType;
   sym_kVar]].

(** State 1911. *)
Definition ts_parse_table_1911 : parse_row :=
  [STATE 2875 [sym__ppIf]; STATE 2590 [sym__procAttributeNoExt];
   STATE 2591 [sym__procAttributesPp]; STATE 14895 [sym_procAttribute];
   STATE 1901 [aux_sym__declProc_repeat1]; ACTIONS 12982 [anon_sym_LBRACK];
   ACTIONS 2063 [aux_sym_ppUsesBlock_token1]; ACTIONS 3 [sym__space];
   ACTIONS 5 [sym_ppDirective]; ACTIONS 3 [sym_comment]; ACTIONS 1016 [sym_kDefault;
   sym_kNodefault]; ACTIONS 11641 [sym_kDispId]; ACTIONS 2056 [sym_kGeneric; sym_kOperator;
   sym_kPublished]; ACTIONS 2072 [sym_kPublic]; ACTIONS 2056 [sym_kProtected; sym_kPrivate;
   sym_kStrict; sym_kRequired; sym_kOptional]; ACTIONS 1016 [sym_kStatic; sym_kVirtual;
   sym_kAbstract; sym_kDynamic; sym_kOverride; sym_kOverload; sym_kReintroduce; sym_kStdcall;
   sym_kCdecl; sym_kCppdecl; sym_kPascal; sym_kRegister; sym_kMwpascal];
   ACTIONS 11645 [sym_kMessage]; ACTIONS 11647 [sym_kDeprecated];
   ACTIONS 1016 [sym_kExperimental; sym_kPlatform; sym_kUnimplemented; sym_kCvar];
   ACTIONS 11649 [sym_kExport]; ACTIONS 1016 [sym_kFar; sym_kNear; sym_kSafecall; sym_kAssembler;
   sym_kNostackframe; sym_kInterrupt; sym_kNoreturn; sym_kIocheck; sym_kLocal; sym_kHardfloat;
   sym_kSoftfloat; sym_kMs_abi_default; sym_kMs_abi_cdecl; sym_kSaveregisters;
   sym_kSysv_abi_default; sym_kSysv_abi_cdecl; sym_kVectorcall; sym_kVarargs; sym_kWinapi];
   ACTIONS 11651 [sym_kAlias]; ACTIONS 2056 [sym_kCase; sym_kClass; sym_kConst; sym_kConstructor;
   sym_kDestructor; sym_kEnd; sym_kFunction]; ACTIONS 1016 [sym_kInline];
   ACTIONS 2056 [sym_kProcedure; sym_kProperty; sym_kResourcestring; sym_kThreadvar; sym_kType;
   sym_kVar]].

(** State 1912. *)
Definition ts_parse_table_1912 : parse_row :=
  [STATE 2875 [sym__ppIf]; STATE 2590 [sym__procAttributeNoExt];
   STATE 2591 [sym__procAttributesPp]; STATE 14895 [sym_procAttribute];
   STATE 1901 [aux_sym__declProc_repeat1]; ACTIONS 12985 [anon_sym_LBRACK];
   ACTIONS 4005 [aux_sym_ppUsesBlock_token1]; ACTIONS 3 [sym__space];
   ACTIONS 5 [sym_ppDirective]; ACTIONS 3 [sym_comment]; ACTIONS 1016 [sym_kDefault;
   sym_kNodefault]; ACTIONS 11641 [sym_kDispId]; ACTIONS 3998 [sym_kGeneric; sym_kOperator;
   sym_kPublished]; ACTIONS 4014 [sym_kPublic]; ACTIONS 3998 [sym_kProtected; sym_kPrivate;
   sym_kStrict; sym_kRequired; sym_kOptional]; ACTIONS 1016 [sym_kStatic; sym_kVirtual;
   sym_kAbstract; sym_kDynamic; sym_kOverride; sym_kOverload; sym_kReintroduce; sym_kStdcall;
   sym_kCdecl; sym_kCppdecl; sym_kPascal; sym_kRegister; sym_kMwpascal];
   ACTIONS 11645 [sym_kMessage]; ACTIONS 11647 [sym_kDeprecated];
   ACTIONS 1016 [sym_kExperimental; sym_kPlatform; sym_kUnimplemented; sym_kCvar];
   ACTIONS 11649 [sym_kExport]; ACTIONS 1016 [sym_kFar; sym_kNear; sym_kSafecall; sym_kAssembler;
   sym_kNostackframe; sym_kInterrupt; sym_kNoreturn; sym_kIocheck; sym_kLocal; sym_kHardfloat;
   sym_kSoftfloat; sym_kMs_abi_default; sym_kMs_abi_cdecl; sym_kSaveregisters;
   sym_kSysv_abi_default; sym_kSysv_abi_cdecl; sym_kVectorcall; sym_kVarargs; sym_kWinapi];
   ACTIONS 11651 [sym_kAlias]; ACTIONS 3998 [sym_kCase; sym_kClass; sym_kConst; sym_kConstructor;
   sym_kDestructor; sym_kEnd; sym_kFunction]; ACTIONS 1016 [sym_kInline];
   ACTIONS 3998 [sym_kProcedure; sym_kProperty; sym_kResourcestring; sym_kThreadvar; sym_kType;
   sym_kVar]].

(** State 1913. *)
Definition ts_parse_table_1913 : parse_row :=
  [STATE 2434 [sym__procAttribute]; STATE 15557 [sym_procAttribute];
   STATE 1916 [aux_sym_declProcFwd_repeat1]; ACTIONS 12988 [anon_sym_LBRACK];
   ACTIONS 8870 [aux_sym_ppUsesBlock_token1]; ACTIONS 3 [sym__space];
   ACTIONS 5 [sym_ppDirective]; ACTIONS 3 [sym_comment]; ACTIONS 8870 [sym_identifier];
   ACTIONS 1016 [sym_kDefault; sym_kNodefault]; ACTIONS 11641 [sym_kDispId];
   ACTIONS 8870 [sym_kGeneric; sym_kOperator]; ACTIONS 11643 [sym_kPublic];
   ACTIONS 1016 [sym_kStatic; sym_kVirtual; sym_kAbstract; sym_kDynamic; sym_kOverride;
   sym_kOverload; sym_kReintroduce; sym_kStdcall; sym_kCdecl; sym_kCppdecl; sym_kPascal;
   sym_kRegister; sym_kMwpascal]; ACTIONS 11645 [sym_kMessage]; ACTIONS 11647 [sym_kDeprecated];
   ACTIONS 1016 [sym_kExperimental; sym_kPlatform; sym_kUnimplemented; sym_kCvar];
   ACTIONS 11649 [sym_kExport]; ACTIONS 1016 [sym_kFar; sym_kNear; sym_kSafecall; sym_kAssembler;
   sym_kNostackframe; sym_kInterrupt; sym_kNoreturn; sym_kIocheck; sym_kLocal; sym_kHardfloat;
   sym_kSoftfloat; sym_kMs_abi_default; sym_kMs_abi_cdecl; sym_kSaveregisters;
   sym_kSysv_abi_default; sym_kSysv_abi_cdecl; sym_kVectorcall; sym_kVarargs; sym_kWinapi];
   ACTIONS 11651 [sym_kAlias]; ACTIONS 8870 [sym_kClass; sym_kConst; sym_kConstructor;
   sym_kDestructor; sym_kEnd; sym_kExports; sym_kFinalization; sym_kFunction;
   sym_kImplementation; sym_kInitialization]; ACTIONS 1016 [sym_kInline];
   ACTIONS 8870 [sym_kInterface; sym_kLabel; sym_kProcedure; sym_kProperty; sym_kResourcestring;
   sym_kThreadvar; sym_kType; sym_kUses; sym_kVar]].

(** State 1914. *)
Definition ts_parse_table_1914 : parse_row :=
  [STATE 2434 [sym__procAttribute]; STATE 15557 [sym_procAttribute];
   STATE 1914 [aux_sym_declProcFwd_repeat1]; ACTIONS 12991 [anon_sym_LBRACK];
   ACTIONS 8588 [aux_sym_ppUsesBlock_token1]; ACTIONS 3 [sym__space];
   ACTIONS 5 [sym_ppDirective]; ACTIONS 3 [sym_comment]; ACTIONS 8588 [sym_identifier];
   ACTIONS 8595 [sym_kDefault; sym_kNodefault]; ACTIONS 8598 [sym_kDispId];
   ACTIONS 8588 [sym_kGeneric; sym_kOperator]; ACTIONS 8601 [sym_kPublic];
   ACTIONS 8595 [sym_kStatic; sym_kVirtual; sym_kAbstract; sym_kDynamic; sym_kOverride;
   sym_kOverload; sym_kReintroduce; sym_kStdcall; sym_kCdecl; sym_kCppdecl; sym_kPascal;
   sym_kRegister; sym_kMwpascal]; ACTIONS 8604 [sym_kMessage]; ACTIONS 8607 [sym_kDeprecated];
   ACTIONS 8595 [sym_kExperimental; sym_kPlatform; sym_kUnimplemented; sym_kCvar];
   ACTIONS 8610 [sym_kExport]; ACTIONS 8595 [sym_kFar; sym_kNear; sym_kSafecall; sym_kAssembler;
   sym_kNostackframe; sym_kInterrupt; sym_kNoreturn; sym_kIocheck; sym_kLocal; sym_kHardfloat;
   sym_kSoftfloat; sym_kMs_abi_default; sym_kMs_abi_cdecl; sym_kSaveregisters;
   sym_kSysv_abi_default; sym_kSysv_abi_cdecl; sym_kVectorcall; sym_kVarargs; sym_kWinapi];
   ACTIONS 8613 [sym_kAlias]; ACTIONS 8588 [sym_kClass; sym_kConst; sym_kConstructor;
   sym_kDestructor; sym_kEnd; sym_kExports; sym_kFinalization; sym_kFunction;
   sym_kImplementation; sym_kInitialization]; ACTIONS 8595 [sym_kInline];
   ACTIONS 8588 [sym_kInterface; sym_kLabel; sym_kProcedure; sym_kProperty; sym_kResourcestring;
   sym_kThreadvar; sym_kType; sym_kUses; sym_kVar]].

(** State 1915. *)
Definition ts_parse_table_1915 : parse_row :=
  [STATE 2434 [sym__procAttribute]; STATE 15557 [sym_procAttribute];
   STATE 1920 [aux_sym_declProcFwd_repeat1]; ACTIONS 12994 [anon_sym_LBRACK];
   ACTIONS 9336 [aux_sym_ppUsesBlock_token1]; ACTIONS 3 [sym__space];
   ACTIONS 5 [sym_ppDirective]; ACTIONS 3 [sym_comment]; ACTIONS 9336 [sym_identifier];
   ACTIONS 1016 [sym_kDefault; sym_kNodefault]; ACTIONS 11641 [sym_kDispId];
   ACTIONS 9336 [sym_kGeneric; sym_kOperator]; ACTIONS 11643 [sym_kPublic];
   ACTIONS 1016 [sym_kStatic; sym_kVirtual; sym_kAbstract; sym_kDynamic; sym_kOverride;
   sym_kOverload; sym_kReintroduce; sym_kStdcall; sym_kCdecl; sym_kCppdecl; sym_kPascal;
   sym_kRegister; sym_kMwpascal]; ACTIONS 11645 [sym_kMessage]; ACTIONS 11647 [sym_kDeprecated];
   ACTIONS 1016 [sym_kExperimental; sym_kPlatform; sym_kUnimplemented; sym_kCvar];
   ACTIONS 11649 [sym_kExport]; ACTIONS 1016 [sym_kFar; sym_kNear; sym_kSafecall; sym_kAssembler;
   sym_kNostackframe; sym_kInterrupt; sym_kNoreturn; sym_kIocheck; sym_kLocal; sym_kHardfloat;
   sym_kSoftfloat; sym_kMs_abi_default; sym_kMs_abi_cdecl; sym_kSaveregisters;
   sym_kSysv_abi_default; sym_kSysv_abi_cdecl; sym_kVectorcall; sym_kVarargs; sym_kWinapi];
   ACTIONS 11651 [sym_kAlias]; ACTIONS 9336 [sym_kClass; sym_kConst; sym_kConstructor;
   sym_kDestructor; sym_kEnd; sym_kExports; sym_kFinalization; sym_kFunction;
   sym_kImplementation; sym_kInitialization]; ACTIONS 1016 [sym_kInline];
   ACTIONS 9336 [sym_kInterface; sym_kLabel; sym_kProcedure; sym_kProperty; sym_kResourcestring;
   sym_kThreadvar; sym_kType; sym_kUses; sym_kVar]].

(** State 1916. *)
Definition ts_parse_table_1916 : parse_row :=
  [STATE 2434 [sym__procAttribute]; STATE 15557 [sym_procAttribute];
   STATE 1914 [aux_sym_declProcFwd_repeat1]; ACTIONS 12997 [anon_sym_LBRACK];
   ACTIONS 9408 [aux_sym_ppUsesBlock_token1]; ACTIONS 3 [sym__space];
   ACTIONS 5 [sym_ppDirective]; ACTIONS 3 [sym_comment]; ACTIONS 9408 [sym_identifier];
   ACTIONS 1016 [sym_kDefault; sym_kNodefault]; ACTIONS 11641 [sym_kDispId];
   ACTIONS 9408 [sym_kGeneric; sym_kOperator]; ACTIONS 11643 [sym_kPublic];
   ACTIONS 1016 [sym_kStatic; sym_kVirtual; sym_kAbstract; sym_kDynamic; sym_kOverride;
   sym_kOverload; sym_kReintroduce; sym_kStdcall; sym_kCdecl; sym_kCppdecl; sym_kPascal;
   sym_kRegister; sym_kMwpascal]; ACTIONS 11645 [sym_kMessage]; ACTIONS 11647 [sym_kDeprecated];
   ACTIONS 1016 [sym_kExperimental; sym_kPlatform; sym_kUnimplemented; sym_kCvar];
   ACTIONS 11649 [sym_kExport]; ACTIONS 1016 [sym_kFar; sym_kNear; sym_kSafecall; sym_kAssembler;
   sym_kNostackframe; sym_kInterrupt; sym_kNoreturn; sym_kIocheck; sym_kLocal; sym_kHardfloat;
   sym_kSoftfloat; sym_kMs_abi_default; sym_kMs_abi_cdecl; sym_kSaveregisters;
   sym_kSysv_abi_default; sym_kSysv_abi_cdecl; sym_kVectorcall; sym_kVarargs; sym_kWinapi];
   ACTIONS 11651 [sym_kAlias]; ACTIONS 9408 [sym_kClass; sym_kConst; sym_kConstructor;
   sym_kDestructor; sym_kEnd; sym_kExports; sym_kFinalization; sym_kFunction;
   sym_kImplementation; sym_kInitialization]; ACTIONS 1016 [sym_kInline];
   ACTIONS 9408 [sym_kInterface; sym_kLabel; sym_kProcedure; sym_kProperty; sym_kResourcestring;
   sym_kThreadvar; sym_kType; sym_kUses; sym_kVar]].

(** State 1917. *)
Definition ts_parse_table_1917 : parse_row :=
  [STATE 2434 [sym__procAttribute]; STATE 15557 [sym_procAttribute];
   STATE 1923 [aux_sym_declProcFwd_repeat1]; ACTIONS 13000 [anon_sym_LBRACK];
   ACTIONS 7546 [aux_sym_ppUsesBlock_token1]; ACTIONS 3 [sym__space];
   ACTIONS 5 [sym_ppDirective]; ACTIONS 3 [sym_comment]; ACTIONS 7546 [sym_identifier];
   ACTIONS 1016 [sym_kDefault; sym_kNodefault]; ACTIONS 11641 [sym_kDispId];
   ACTIONS 7546 [sym_kGeneric; sym_kOperator]; ACTIONS 11643 [sym_kPublic];
   ACTIONS 1016 [sym_kStatic; sym_kVirtual; sym_kAbstract; sym_kDynamic; sym_kOverride;
   sym_kOverload; sym_kReintroduce; sym_kStdcall; sym_kCdecl; sym_kCppdecl; sym_kPascal;
   sym_kRegister; sym_kMwpascal]; ACTIONS 11645 [sym_kMessage]; ACTIONS 11647 [sym_kDeprecated];
   ACTIONS 1016 [sym_kExperimental; sym_kPlatform; sym_kUnimplemented; sym_kCvar];
   ACTIONS 11649 [sym_kExport]; ACTIONS 1016 [sym_kFar; sym_kNear; sym_kSafecall; sym_kAssembler;
   sym_kNostackframe; sym_kInterrupt; sym_kNoreturn; sym_kIocheck; sym_kLocal; sym_kHardfloat;
   sym_kSoftfloat; sym_kMs_abi_default; sym_kMs_abi_cdecl; sym_kSaveregisters;
   sym_kSysv_abi_default; sym_kSysv_abi_cdecl; sym_kVectorcall; sym_kVarargs; sym_kWinapi];
   ACTIONS 11651 [sym_kAlias]; ACTIONS 7546 [sym_kClass; sym_kConst; sym_kConstructor;
   sym_kDestructor; sym_kEnd; sym_kExports; sym_kFinalization; sym_kFunction;
   sym_kImplementation; sym_kInitialization]; ACTIONS 1016 [sym_kInline];
   ACTIONS 7546 [sym_kInterface; sym_kLabel; sym_kProcedure; sym_kProperty; sym_kResourcestring;
   sym_kThreadvar; sym_kType; sym_kUses; sym_kVar]].

(** State 1918. *)
Definition ts_parse_table_1918 : parse_row :=
  [STATE 2434 [sym__procAttribute]; STATE 15557 [sym_procAttribute];
   STATE 1924 [aux_sym_declProcFwd_repeat1]; ACTIONS 13003 [anon_sym_LBRACK];
   ACTIONS 7574 [aux_sym_ppUsesBlock_token1]; ACTIONS 3 [sym__space];
   ACTIONS 5 [sym_ppDirective]; ACTIONS 3 [sym_comment]; ACTIONS 7574 [sym_identifier];
   ACTIONS 1016 [sym_kDefault; sym_kNodefault]; ACTIONS 11641 [sym_kDispId];
   ACTIONS 7574 [sym_kGeneric; sym_kOperator]; ACTIONS 11643 [sym_kPublic];
   ACTIONS 1016 [sym_kStatic; sym_kVirtual; sym_kAbstract; sym_kDynamic; sym_kOverride;
   sym_kOverload; sym_kReintroduce; sym_kStdcall; sym_kCdecl; sym_kCppdecl; sym_kPascal;
   sym_kRegister; sym_kMwpascal]; ACTIONS 11645 [sym_kMessage]; ACTIONS 11647 [sym_kDeprecated];
   ACTIONS 1016 [sym_kExperimental; sym_kPlatform; sym_kUnimplemented; sym_kCvar];
   ACTIONS 11649 [sym_kExport]; ACTIONS 1016 [sym_kFar; sym_kNear; sym_kSafecall; sym_kAssembler;
   sym_kNostackframe; sym_kInterrupt; sym_kNoreturn; sym_kIocheck; sym_kLocal; sym_kHardfloat;
   sym_kSoftfloat; sym_kMs_abi_default; sym_kMs_abi_cdecl; sym_kSaveregisters;
   sym_kSysv_abi_default; sym_kSysv_abi_cdecl; sym_kVectorcall; sym_kVarargs; sym_kWinapi];
   ACTIONS 11651 [sym_kAlias]; ACTIONS 7574 [sym_kClass; sym_kConst; sym_kConstructor;
   sym_kDestructor; sym_kEnd; sym_kExports; sym_kFinalization; sym_kFunction;
   sym_kImplementation; sym_kInitialization]; ACTIONS 1016 [sym_kInline];
   ACTIONS 7574 [sym_kInterface; sym_kLabel; sym_kProcedure; sym_kProperty; sym_kResourcestring;
   sym_kThreadvar; sym_kType; sym_kUses; sym_kVar]].

(** State 1919. *)
Definition ts_parse_table_1919 : parse_row :=
  [STATE 2434 [sym__procAttribute]; STATE 15557 [sym_procAttribute];
   STATE 1914 [aux_sym_declProcFwd_repeat1]; ACTIONS 13006 [anon_sym_LBRACK];
   ACTIONS 7602 [aux_sym_ppUsesBlock_token1]; ACTIONS 3 [sym__space];
   ACTIONS 5 [sym_ppDirective]; ACTIONS 3 [sym_comment]; ACTIONS 7602 [sym_identifier];
   ACTIONS 1016 [sym_kDefault; sym_kNodefault]; ACTIONS 11641 [sym_kDispId];
   ACTIONS 7602 [sym_kGeneric; sym_kOperator]; ACTIONS 11643 [sym_kPublic];
   ACTIONS 1016 [sym_kStatic; sym_kVirtual; sym_kAbstract; sym_kDynamic; sym_kOverride;
   sym_kOverload; sym_kReintroduce; sym_kStdcall; sym_kCdecl; sym_kCppdecl; sym_kPascal;
   sym_kRegister; sym_kMwpascal]; ACTIONS 11645 [sym_kMessage]; ACTIONS 11647 [sym_kDeprecated];
   ACTIONS 1016 [sym_kExperimental; sym_kPlatform; sym_kUnimplemented; sym_kCvar];
   ACTIONS 11649 [sym_kExport]; ACTIONS 1016 [sym_kFar; sym_kNear; sym_kSafecall; sym_kAssembler;
   sym_kNostackframe; sym_kInterrupt; sym_kNoreturn; sym_kIocheck; sym_kLocal; sym_kHardfloat;
   sym_kSoftfloat; sym_kMs_abi_default; sym_kMs_abi_cdecl; sym_kSaveregisters;
   sym_kSysv_abi_default; sym_kSysv_abi_cdecl; sym_kVectorcall; sym_kVarargs; sym_kWinapi];
   ACTIONS 11651 [sym_kAlias]; ACTIONS 7602 [sym_kClass; sym_kConst; sym_kConstructor;
   sym_kDestructor; sym_kEnd; sym_kExports; sym_kFinalization; sym_kFunction;
   sym_kImplementation; sym_kInitialization]; ACTIONS 1016 [sym_kInline];
   ACTIONS 7602 [sym_kInterface; sym_kLabel; sym_kProcedure; sym_kProperty; sym_kResourcestring;
   sym_kThreadvar; sym_kType; sym_kUses; sym_kVar]].

(** State 1920. *)
Definition ts_parse_table_1920 : parse_row :=
  [STATE 2434 [sym__procAttribute]; STATE 15557 [sym_procAttribute];
   STATE 1914 [aux_sym_declProcFwd_repeat1]; ACTIONS 13009 [anon_sym_LBRACK];
   ACTIONS 8030 [aux_sym_ppUsesBlock_token1]; ACTIONS 3 [sym__space];
   ACTIONS 5 [sym_ppDirective]; ACTIONS 3 [sym_comment]; ACTIONS 8030 [sym_identifier];
   ACTIONS 1016 [sym_kDefault; sym_kNodefault]; ACTIONS 11641 [sym_kDispId];
   ACTIONS 8030 [sym_kGeneric; sym_kOperator]; ACTIONS 11643 [sym_kPublic];
   ACTIONS 1016 [sym_kStatic; sym_kVirtual; sym_kAbstract; sym_kDynamic; sym_kOverride;
   sym_kOverload; sym_kReintroduce; sym_kStdcall; sym_kCdecl; sym_kCppdecl; sym_kPascal;
   sym_kRegister; sym_kMwpascal]; ACTIONS 11645 [sym_kMessage]; ACTIONS 11647 [sym_kDeprecated];
   ACTIONS 1016 [sym_kExperimental; sym_kPlatform; sym_kUnimplemented; sym_kCvar];
   ACTIONS 11649 [sym_kExport]; ACTIONS 1016 [sym_kFar; sym_kNear; sym_kSafecall; sym_kAssembler;
   sym_kNostackframe; sym_kInterrupt; sym_kNoreturn; sym_kIocheck; sym_kLocal; sym_kHardfloat;
   sym_kSoftfloat; sym_kMs_abi_default; sym_kMs_abi_cdecl; sym_kSaveregisters;
   sym_kSysv_abi_default; sym_kSysv_abi_cdecl; sym_kVectorcall; sym_kVarargs; sym_kWinapi];
   ACTIONS 11651 [sym_kAlias]; ACTIONS 8030 [sym_kClass; sym_kConst; sym_kConstructor;
   sym_kDestructor; sym_kEnd; sym_kExports; sym_kFinalization; sym_kFunction;
   sym_kImplementation; sym_kInitialization]; ACTIONS 1016 [sym_kInline];
   ACTIONS 8030 [sym_kInterface; sym_kLabel; sym_kProcedure; sym_kProperty; sym_kResourcestring;
   sym_kThreadvar; sym_kType; sym_kUses; sym_kVar]].

(** State 1921. *)
Definition ts_parse_table_1921 : parse_row :=
  [STATE 2434 [sym__procAttribute]; STATE 15557 [sym_procAttribute];
   STATE 1926 [aux_sym_declProcFwd_repeat1]; ACTIONS 13012 [anon_sym_LBRACK];
   ACTIONS 8058 [aux_sym_ppUsesBlock_token1]; ACTIONS 3 [sym__space];
   ACTIONS 5 [sym_ppDirective]; ACTIONS 3 [sym_comment]; ACTIONS 8058 [sym_identifier];
   ACTIONS 1016 [sym_kDefault; sym_kNodefault]; ACTIONS 11641 [sym_kDispId];
   ACTIONS 8058 [sym_kGeneric; sym_kOperator]; ACTIONS 11643 [sym_kPublic];
   ACTIONS 1016 [sym_kStatic; sym_kVirtual; sym_kAbstract; sym_kDynamic; sym_kOverride;
   sym_kOverload; sym_kReintroduce; sym_kStdcall; sym_kCdecl; sym_kCppdecl; sym_kPascal;
   sym_kRegister; sym_kMwpascal]; ACTIONS 11645 [sym_kMessage]; ACTIONS 11647 [sym_kDeprecated];
   ACTIONS 1016 [sym_kExperimental; sym_kPlatform; sym_kUnimplemented; sym_kCvar];
   ACTIONS 11649 [sym_kExport]; ACTIONS 1016 [sym_kFar; sym_kNear; sym_kSafecall; sym_kAssembler;
   sym_kNostackframe; sym_kInterrupt; sym_kNoreturn; sym_kIocheck; sym_kLocal; sym_kHardfloat;
   sym_kSoftfloat; sym_kMs_abi_default; sym_kMs_abi_cdecl; sym_kSaveregisters;
   sym_kSysv_abi_default; sym_kSysv_abi_cdecl; sym_kVectorcall; sym_kVarargs; sym_kWinapi];
   ACTIONS 11651 [sym_kAlias]; ACTIONS 8058 [sym_kClass; sym_kConst; sym_kConstructor;
   sym_kDestructor; sym_kEnd; sym_kExports; sym_kFinalization; sym_kFunction;
   sym_kImplementation; sym_kInitialization]; ACTIONS 1016 [sym_kInline];
   ACTIONS 8058 [sym_kInterface; sym_kLabel; sym_kProcedure; sym_kProperty; sym_kResourcestring;
   sym_kThreadvar; sym_kType; sym_kUses; sym_kVar]].

(** State 1922. *)
Definition ts_parse_table_1922 : parse_row :=
  [STATE 2434 [sym__procAttribute]; STATE 15557 [sym_procAttribute];
   STATE 1927 [aux_sym_declProcFwd_repeat1]; ACTIONS 13015 [anon_sym_LBRACK];
   ACTIONS 8250 [aux_sym_ppUsesBlock_token1]; ACTIONS 3 [sym__space];
   ACTIONS 5 [sym_ppDirective]; ACTIONS 3 [sym_comment]; ACTIONS 8250 [sym_identifier];
   ACTIONS 1016 [sym_kDefault; sym_kNodefault]; ACTIONS 11641 [sym_kDispId];
   ACTIONS 8250 [sym_kGeneric; sym_kOperator]; ACTIONS 11643 [sym_kPublic];
   ACTIONS 1016 [sym_kStatic; sym_kVirtual; sym_kAbstract; sym_kDynamic; sym_kOverride;
   sym_kOverload; sym_kReintroduce; sym_kStdcall; sym_kCdecl; sym_kCppdecl; sym_kPascal;
   sym_kRegister; sym_kMwpascal]; ACTIONS 11645 [sym_kMessage]; ACTIONS 11647 [sym_kDeprecated];
   ACTIONS 1016 [sym_kExperimental; sym_kPlatform; sym_kUnimplemented; sym_kCvar];
   ACTIONS 11649 [sym_kExport]; ACTIONS 1016 [sym_kFar; sym_kNear; sym_kSafecall; sym_kAssembler;
   sym_kNostackframe; sym_kInterrupt; sym_kNoreturn; sym_kIocheck; sym_kLocal; sym_kHardfloat;
   sym_kSoftfloat; sym_kMs_abi_default; sym_kMs_abi_cdecl; sym_kSaveregisters;
   sym_kSysv_abi_default; sym_kSysv_abi_cdecl; sym_kVectorcall; sym_kVarargs; sym_kWinapi];
   ACTIONS 11651 [sym_kAlias]; ACTIONS 8250 [sym_kClass; sym_kConst; sym_kConstructor;
   sym_kDestructor; sym_kEnd; sym_kExports; sym_kFinalization; sym_kFunction;
   sym_kImplementation; sym_kInitialization]; ACTIONS 1016 [sym_kInline];
   ACTIONS 8250 [sym_kInterface; sym_kLabel; sym_kProcedure; sym_kProperty; sym_kResourcestring;
   sym_kThreadvar; sym_kType; sym_kUses; sym_kVar]].

(** State 1923. *)
Definition ts_parse_table_1923 : parse_row :=
  [STATE 2434 [sym__procAttribute]; STATE 15557 [sym_procAttribute];
   STATE 1914 [aux_sym_declProcFwd_repeat1]; ACTIONS 13018 [anon_sym_LBRACK];
   ACTIONS 8278 [aux_sym_ppUsesBlock_token1]; ACTIONS 3 [sym__space];
   ACTIONS 5 [sym_ppDirective]; ACTIONS 3 [sym_comment]; ACTIONS 8278 [sym_identifier];
   ACTIONS 1016 [sym_kDefault; sym_kNodefault]; ACTIONS 11641 [sym_kDispId];
   ACTIONS 8278 [sym_kGeneric; sym_kOperator]; ACTIONS 11643 [sym_kPublic];
   ACTIONS 1016 [sym_kStatic; sym_kVirtual; sym_kAbstract; sym_kDynamic; sym_kOverride;
   sym_kOverload; sym_kReintroduce; sym_kStdcall; sym_kCdecl; sym_kCppdecl; sym_kPascal;
   sym_kRegister; sym_kMwpascal]; ACTIONS 11645 [sym_kMessage]; ACTIONS 11647 [sym_kDeprecated];
   ACTIONS 1016 [sym_kExperimental; sym_kPlatform; sym_kUnimplemented; sym_kCvar];
   ACTIONS 11649 [sym_kExport]; ACTIONS 1016 [sym_kFar; sym_kNear; sym_kSafecall; sym_kAssembler;
   sym_kNostackframe; sym_kInterrupt; sym_kNoreturn; sym_kIocheck; sym_kLocal; sym_kHardfloat;
   sym_kSoftfloat; sym_kMs_abi_default; sym_kMs_abi_cdecl; sym_kSaveregisters;
   sym_kSysv_abi_default; sym_kSysv_abi_cdecl; sym_kVectorcall; sym_kVarargs; sym_kWinapi];
   ACTIONS 11651 [sym_kAlias]; ACTIONS 8278 [sym_kClass; sym_kConst; sym_kConstructor;
   sym_kDestructor; sym_kEnd; sym_kExports; sym_kFinalization; sym_kFunction;
   sym_kImplementation; sym_kInitialization]; ACTIONS 1016 [sym_kInline];
   ACTIONS 8278 [sym_kInterface; sym_kLabel; sym_kProcedure; sym_kProperty; sym_kResourcestring;
   sym_kThreadvar; sym_kType; sym_kUses; sym_kVar]].

(** State 1924. *)
Definition ts_parse_table_1924 : parse_row :=
  [STATE 2434 [sym__procAttribute]; STATE 15557 [sym_procAttribute];
   STATE 1914 [aux_sym_declProcFwd_repeat1]; ACTIONS 13021 [anon_sym_LBRACK];
   ACTIONS 8308 [aux_sym_ppUsesBlock_token1]; ACTIONS 3 [sym__space];
   ACTIONS 5 [sym_ppDirective]; ACTIONS 3 [sym_comment]; ACTIONS 8308 [sym_identifier];
   ACTIONS 1016 [sym_kDefault; sym_kNodefault]; ACTIONS 11641 [sym_kDispId];
   ACTIONS 8308 [sym_kGeneric; sym_kOperator]; ACTIONS 11643 [sym_kPublic];
   ACTIONS 1016 [sym_kStatic; sym_kVirtual; sym_kAbstract; sym_kDynamic; sym_kOverride;
   sym_kOverload; sym_kReintroduce; sym_kStdcall; sym_kCdecl; sym_kCppdecl; sym_kPascal;
   sym_kRegister; sym_kMwpascal]; ACTIONS 11645 [sym_kMessage]; ACTIONS 11647 [sym_kDeprecated];
   ACTIONS 1016 [sym_kExperimental; sym_kPlatform; sym_kUnimplemented; sym_kCvar];
   ACTIONS 11649 [sym_kExport]; ACTIONS 1016 [sym_kFar; sym_kNear; sym_kSafecall; sym_kAssembler;
   sym_kNostackframe; sym_kInterrupt; sym_kNoreturn; sym_kIocheck; sym_kLocal; sym_kHardfloat;
   sym_kSoftfloat; sym_kMs_abi_default; sym_kMs_abi_cdecl; sym_kSaveregisters;
   sym_kSysv_abi_default; sym_kSysv_abi_cdecl; sym_kVectorcall; sym_kVarargs; sym_kWinapi];
   ACTIONS 11651 [sym_kAlias]; ACTIONS 8308 [sym_kClass; sym_kConst; sym_kConstructor;
   sym_kDestructor; sym_kEnd; sym_kExports; sym_kFinalization; sym_kFunction;
   sym_kImplementation; sym_kInitialization]; ACTIONS 1016 [sym_kInline];
   ACTIONS 8308 [sym_kInterface; sym_kLabel; sym_kProcedure; sym_kProperty; sym_kResourcestring;
   sym_kThreadvar; sym_kType; sym_kUses; sym_kVar]].

(** State 1925. *)
Definition ts_parse_table_1925 : parse_row :=
  [STATE 2434 [sym__procAttribute]; STATE 15557 [sym_procAttribute];
   STATE 1929 [aux_sym_declProcFwd_repeat1]; ACTIONS 13024 [anon_sym_LBRACK];
   ACTIONS 8336 [aux_sym_ppUsesBlock_token1]; ACTIONS 3 [sym__space];
   ACTIONS 5 [sym_ppDirective]; ACTIONS 3 [sym_comment]; ACTIONS 8336 [sym_identifier];
   ACTIONS 1016 [sym_kDefault; sym_kNodefault]; ACTIONS 11641 [sym_kDispId];
   ACTIONS 8336 [sym_kGeneric; sym_kOperator]; ACTIONS 11643 [sym_kPublic];
   ACTIONS 1016 [sym_kStatic; sym_kVirtual; sym_kAbstract; sym_kDynamic; sym_kOverride;
   sym_kOverload; sym_kReintroduce; sym_kStdcall; sym_kCdecl; sym_kCppdecl; sym_kPascal;
   sym_kRegister; sym_kMwpascal]; ACTIONS 11645 [sym_kMessage]; ACTIONS 11647 [sym_kDeprecated];
   ACTIONS 1016 [sym_kExperimental; sym_kPlatform; sym_kUnimplemented; sym_kCvar];
   ACTIONS 11649 [sym_kExport]; ACTIONS 1016 [sym_kFar; sym_kNear; sym_kSafecall; sym_kAssembler;
   sym_kNostackframe; sym_kInterrupt; sym_kNoreturn; sym_kIocheck; sym_kLocal; sym_kHardfloat;
   sym_kSoftfloat; sym_kMs_abi_default; sym_kMs_abi_cdecl; sym_kSaveregisters;
   sym_kSysv_abi_default; sym_kSysv_abi_cdecl; sym_kVectorcall; sym_kVarargs; sym_kWinapi];
   ACTIONS 11651 [sym_kAlias]; ACTIONS 8336 [sym_kClass; sym_kConst; sym_kConstructor;
   sym_kDestructor; sym_kEnd; sym_kExports; sym_kFinalization; sym_kFunction;
   sym_kImplementation; sym_kInitialization]; ACTIONS 1016 [sym_kInline];
   ACTIONS 8336 [sym_kInterface; sym_kLabel; sym_kProcedure; sym_kProperty; sym_kResourcestring;
   sym_kThreadvar; sym_kType; sym_kUses; sym_kVar]].

(** State 1926. *)
Definition ts_parse_table_1926 : parse_row :=
  [STATE 2434 [sym__procAttribute]; STATE 15557 [sym_procAttribute];
   STATE 1914 [aux_sym_declProcFwd_repeat1]; ACTIONS 13027 [anon_sym_LBRACK];
   ACTIONS 8420 [aux_sym_ppUsesBlock_token1]; ACTIONS 3 [sym__space];
   ACTIONS 5 [sym_ppDirective]; ACTIONS 3 [sym_comment]; ACTIONS 8420 [sym_identifier];
   ACTIONS 1016 [sym_kDefault; sym_kNodefault]; ACTIONS 11641 [sym_kDispId];
   ACTIONS 8420 [sym_kGeneric; sym_kOperator]; ACTIONS 11643 [sym_kPublic];
   ACTIONS 1016 [sym_kStatic; sym_kVirtual; sym_kAbstract; sym_kDynamic; sym_kOverride;
   sym_kOverload; sym_kReintroduce; sym_kStdcall; sym_kCdecl; sym_kCppdecl; sym_kPascal;
   sym_kRegister; sym_kMwpascal]; ACTIONS 11645 [sym_kMessage]; ACTIONS 11647 [sym_kDeprecated];
   ACTIONS 1016 [sym_kExperimental; sym_kPlatform; sym_kUnimplemented; sym_kCvar];
   ACTIONS 11649 [sym_kExport]; ACTIONS 1016 [sym_kFar; sym_kNear; sym_kSafecall; sym_kAssembler;
   sym_kNostackframe; sym_kInterrupt; sym_kNoreturn; sym_kIocheck; sym_kLocal; sym_kHardfloat;
   sym_kSoftfloat; sym_kMs_abi_default; sym_kMs_abi_cdecl; sym_kSaveregisters;
   sym_kSysv_abi_default; sym_kSysv_abi_cdecl; sym_kVectorcall; sym_kVarargs; sym_kWinapi];
   ACTIONS 11651 [sym_kAlias]; ACTIONS 8420 [sym_kClass; sym_kConst; sym_kConstructor;
   sym_kDestructor; sym_kEnd; sym_kExports; sym_kFinalization; sym_kFunction;
   sym_kImplementation; sym_kInitialization]; ACTIONS 1016 [sym_kInline];
   ACTIONS 8420 [sym_kInterface; sym_kLabel; sym_kProcedure; sym_kProperty; sym_kResourcestring;
   sym_kThreadvar; sym_kType; sym_kUses; sym_kVar]].

(** State 1927. *)
Definition ts_parse_table_1927 : parse_row :=
  [STATE 2434 [sym__procAttribute]; STATE 15557 [sym_procAttribute];
   STATE 1914 [aux_sym_declProcFwd_repeat1]; ACTIONS 13030 [anon_sym_LBRACK];
   ACTIONS 8476 [aux_sym_ppUsesBlock_token1]; ACTIONS 3 [sym__space];
   ACTIONS 5 [sym_ppDirective]; ACTIONS 3 [sym_comment]; ACTIONS 8476 [sym_identifier];
   ACTIONS 1016 [sym_kDefault; sym_kNodefault]; ACTIONS 11641 [sym_kDispId];
   ACTIONS 8476 [sym_kGeneric; sym_kOperator]; ACTIONS 11643 [sym_kPublic];
   ACTIONS 1016 [sym_kStatic; sym_kVirtual; sym_kAbstract; sym_kDynamic; sym_kOverride;
   sym_kOverload; sym_kReintroduce; sym_kStdcall; sym_kCdecl; sym_kCppdecl; sym_kPascal;
   sym_kRegister; sym_kMwpascal]; ACTIONS 11645 [sym_kMessage]; ACTIONS 11647 [sym_kDeprecated];
   ACTIONS 1016 [sym_kExperimental; sym_kPlatform; sym_kUnimplemented; sym_kCvar];
   ACTIONS 11649 [sym_kExport]; ACTIONS 1016 [sym_kFar; sym_kNear; sym_kSafecall; sym_kAssembler;
   sym_kNostackframe; sym_kInterrupt; sym_kNoreturn; sym_kIocheck; sym_kLocal; sym_kHardfloat;
   sym_kSoftfloat; sym_kMs_abi_default; sym_kMs_abi_cdecl; sym_kSaveregisters;
   sym_kSysv_abi_default; sym_kSysv_abi_cdecl; sym_kVectorcall; sym_kVarargs; sym_kWinapi];
   ACTIONS 11651 [sym_kAlias]; ACTIONS 8476 [sym_kClass; sym_kConst; sym_kConstructor;
   sym_kDestructor; sym_kEnd; sym_kExports; sym_kFinalization; sym_kFunction;
   sym_kImplementation; sym_kInitialization]; ACTIONS 1016 [sym_kInline];
   ACTIONS 8476 [sym_kInterface; sym_kLabel; sym_kProcedure; sym_kProperty; sym_kResourcestring;
   sym_kThreadvar; sym_kType; sym_kUses; sym_kVar]].

(** State 1928. *)
Definition ts_parse_table_1928 : parse_row :=
  [STATE 2434 [sym__procAttribute]; STATE 15557 [sym_procAttribute];
   STATE 1930 [aux_sym_declProcFwd_repeat1]; ACTIONS 13033 [anon_sym_LBRACK];
   ACTIONS 8504 [aux_sym_ppUsesBlock_token1]; ACTIONS 3 [sym__space];
   ACTIONS 5 [sym_ppDirective]; ACTIONS 3 [sym_comment]; ACTIONS 8504 [sym_identifier];
   ACTIONS 1016 [sym_kDefault; sym_kNodefault]; ACTIONS 11641 [sym_kDispId];
   ACTIONS 8504 [sym_kGeneric; sym_kOperator]; ACTIONS 11643 [sym_kPublic];
   ACTIONS 1016 [sym_kStatic; sym_kVirtual; sym_kAbstract; sym_kDynamic; sym_kOverride;
   sym_kOverload; sym_kReintroduce; sym_kStdcall; sym_kCdecl; sym_kCppdecl; sym_kPascal;
   sym_kRegister; sym_kMwpascal]; ACTIONS 11645 [sym_kMessage]; ACTIONS 11647 [sym_kDeprecated];
   ACTIONS 1016 [sym_kExperimental; sym_kPlatform; sym_kUnimplemented; sym_kCvar];
   ACTIONS 11649 [sym_kExport]; ACTIONS 1016 [sym_kFar; sym_kNear; sym_kSafecall; sym_kAssembler;
   sym_kNostackframe; sym_kInterrupt; sym_kNoreturn; sym_kIocheck; sym_kLocal; sym_kHardfloat;
   sym_kSoftfloat; sym_kMs_abi_default; sym_kMs_abi_cdecl; sym_kSaveregisters;
   sym_kSysv_abi_default; sym_kSysv_abi_cdecl; sym_kVectorcall; sym_kVarargs; sym_kWinapi];
   ACTIONS 11651 [sym_kAlias]; ACTIONS 8504 [sym_kClass; sym_kConst; sym_kConstructor;
   sym_kDestructor; sym_kEnd; sym_kExports; sym_kFinalization; sym_kFunction;
   sym_kImplementation; sym_kInitialization]; ACTIONS 1016 [sym_kInline];
   ACTIONS 8504 [sym_kInterface; sym_kLabel; sym_kProcedure; sym_kProperty; sym_kResourcestring;
   sym_kThreadvar; sym_kType; sym_kUses; sym_kVar]].

(** State 1929. *)
Definition ts_parse_table_1929 : parse_row :=
  [STATE 2434 [sym__procAttribute]; STATE 15557 [sym_procAttribute];
   STATE 1914 [aux_sym_declProcFwd_repeat1]; ACTIONS 13036 [anon_sym_LBRACK];
   ACTIONS 8532 [aux_sym_ppUsesBlock_token1]; ACTIONS 3 [sym__space];
   ACTIONS 5 [sym_ppDirective]; ACTIONS 3 [sym_comment]; ACTIONS 8532 [sym_identifier];
   ACTIONS 1016 [sym_kDefault; sym_kNodefault]; ACTIONS 11641 [sym_kDispId];
   ACTIONS 8532 [sym_kGeneric; sym_kOperator]; ACTIONS 11643 [sym_kPublic];
   ACTIONS 1016 [sym_kStatic; sym_kVirtual; sym_kAbstract; sym_kDynamic; sym_kOverride;
   sym_kOverload; sym_kReintroduce; sym_kStdcall; sym_kCdecl; sym_kCppdecl; sym_kPascal;
   sym_kRegister; sym_kMwpascal]; ACTIONS 11645 [sym_kMessage]; ACTIONS 11647 [sym_kDeprecated];
   ACTIONS 1016 [sym_kExperimental; sym_kPlatform; sym_kUnimplemented; sym_kCvar];
   ACTIONS 11649 [sym_kExport]; ACTIONS 1016 [sym_kFar; sym_kNear; sym_kSafecall; sym_kAssembler;
   sym_kNostackframe; sym_kInterrupt; sym_kNoreturn; sym_kIocheck; sym_kLocal; sym_kHardfloat;
   sym_kSoftfloat; sym_kMs_abi_default; sym_kMs_abi_cdecl; sym_kSaveregisters;
   sym_kSysv_abi_default; sym_kSysv_abi_cdecl; sym_kVectorcall; sym_kVarargs; sym_kWinapi];
   ACTIONS 11651 [sym_kAlias]; ACTIONS 8532 [sym_kClass; sym_kConst; sym_kConstructor;
   sym_kDestructor; sym_kEnd; sym_kExports; sym_kFinalization; sym_kFunction;
   sym_kImplementation; sym_kInitialization]; ACTIONS 1016 [sym_kInline];
   ACTIONS 8532 [sym_kInterface; sym_kLabel; sym_kProcedure; sym_kProperty; sym_kResourcestring;
   sym_kThreadvar; sym_kType; sym_kUses; sym_kVar]].

(** State 1930. *)
Definition ts_parse_table_1930 : parse_row :=
  [STATE 2434 [sym__procAttribute]; STATE 15557 [sym_procAttribute];
   STATE 1914 [aux_sym_declProcFwd_repeat1]; ACTIONS 13039 [anon_sym_LBRACK];
   ACTIONS 8756 [aux_sym_ppUsesBlock_token1]; ACTIONS 3 [sym__space];
   ACTIONS 5 [sym_ppDirective]; ACTIONS 3 [sym_comment]; ACTIONS 8756 [sym_identifier];
   ACTIONS 1016 [sym_kDefault; sym_kNodefault]; ACTIONS 11641 [sym_kDispId];
   ACTIONS 8756 [sym_kGeneric; sym_kOperator]; ACTIONS 11643 [sym_kPublic];
   ACTIONS 1016 [sym_kStatic; sym_kVirtual; sym_kAbstract; sym_kDynamic; sym_kOverride;
   sym_kOverload; sym_kReintroduce; sym_kStdcall; sym_kCdecl; sym_kCppdecl; sym_kPascal;
   sym_kRegister; sym_kMwpascal]; ACTIONS 11645 [sym_kMessage]; ACTIONS 11647 [sym_kDeprecated];
   ACTIONS 1016 [sym_kExperimental; sym_kPlatform; sym_kUnimplemented; sym_kCvar];
   ACTIONS 11649 [sym_kExport]; ACTIONS 1016 [sym_kFar; sym_kNear; sym_kSafecall; sym_kAssembler;
   sym_kNostackframe; sym_kInterrupt; sym_kNoreturn; sym_kIocheck; sym_kLocal; sym_kHardfloat;
   sym_kSoftfloat; sym_kMs_abi_default; sym_kMs_abi_cdecl; sym_kSaveregisters;
   sym_kSysv_abi_default; sym_kSysv_abi_cdecl; sym_kVectorcall; sym_kVarargs; sym_kWinapi];
   ACTIONS 11651 [sym_kAlias]; ACTIONS 8756 [sym_kClass; sym_kConst; sym_kConstructor;
   sym_kDestructor; sym_kEnd; sym_kExports; sym_kFinalization; sym_kFunction;
   sym_kImplementation; sym_kInitialization]; ACTIONS 1016 [sym_kInline];
   ACTIONS 8756 [sym_kInterface; sym_kLabel; sym_kProcedure; sym_kProperty; sym_kResourcestring;
   sym_kThreadvar; sym_kType; sym_kUses; sym_kVar]].

(** State 1931. *)
Definition ts_parse_table_1931 : parse_row :=
  [STATE 2431 [sym__procAttribute]; STATE 15210 [sym_procAttribute];
   STATE 1974 [aux_sym_declProcFwd_repeat1]; ACTIONS 13042 [anon_sym_LBRACK];
   ACTIONS 9408 [aux_sym_ppUsesBlock_token1]; ACTIONS 3 [sym__space];
   ACTIONS 5 [sym_ppDirective]; ACTIONS 3 [sym_comment]; ACTIONS 9408 [sym_identifier];
   ACTIONS 1016 [sym_kDefault; sym_kNodefault]; ACTIONS 11641 [sym_kDispId];
   ACTIONS 9408 [sym_kGeneric; sym_kOperator]; ACTIONS 11643 [sym_kPublic];
   ACTIONS 1016 [sym_kStatic; sym_kVirtual; sym_kAbstract; sym_kDynamic; sym_kOverride;
   sym_kOverload; sym_kReintroduce; sym_kStdcall; sym_kCdecl; sym_kCppdecl; sym_kPascal;
   sym_kRegister; sym_kMwpascal]; ACTIONS 11645 [sym_kMessage]; ACTIONS 11647 [sym_kDeprecated];
   ACTIONS 1016 [sym_kExperimental; sym_kPlatform; sym_kUnimplemented; sym_kCvar];
   ACTIONS 11649 [sym_kExport]; ACTIONS 1016 [sym_kFar; sym_kNear; sym_kSafecall; sym_kAssembler;
   sym_kNostackframe; sym_kInterrupt; sym_kNoreturn; sym_kIocheck; sym_kLocal; sym_kHardfloat;
   sym_kSoftfloat; sym_kMs_abi_default; sym_kMs_abi_cdecl; sym_kSaveregisters;
   sym_kSysv_abi_default; sym_kSysv_abi_cdecl; sym_kVectorcall; sym_kVarargs; sym_kWinapi];
   ACTIONS 11651 [sym_kAlias]; ACTIONS 9408 [sym_kBegin; sym_kClass; sym_kConst;
   sym_kConstructor; sym_kDestructor; sym_kEnd; sym_kExports; sym_kFinalization; sym_kFunction;
   sym_kImplementation; sym_kInitialization]; ACTIONS 1016 [sym_kInline];
   ACTIONS 9408 [sym_kInterface; sym_kLabel; sym_kProcedure; sym_kResourcestring; sym_kThreadvar;
   sym_kType; sym_kUses; sym_kVar]].

(** State 1932. *)
Definition ts_parse_table_1932 : parse_row :=
  [STATE 2431 [sym__procAttribute]; STATE 15210 [sym_procAttribute];
   STATE 1974 [aux_sym_declProcFwd_repeat1]; ACTIONS 13045 [anon_sym_LBRACK];
   ACTIONS 8030 [aux_sym_ppUsesBlock_token1]; ACTIONS 3 [sym__space];
   ACTIONS 5 [sym_ppDirective]; ACTIONS 3 [sym_comment]; ACTIONS 8030 [sym_identifier];
   ACTIONS 1016 [sym_kDefault; sym_kNodefault]; ACTIONS 11641 [sym_kDispId];
   ACTIONS 8030 [sym_kGeneric; sym_kOperator]; ACTIONS 11643 [sym_kPublic];
   ACTIONS 1016 [sym_kStatic; sym_kVirtual; sym_kAbstract; sym_kDynamic; sym_kOverride;
   sym_kOverload; sym_kReintroduce; sym_kStdcall; sym_kCdecl; sym_kCppdecl; sym_kPascal;
   sym_kRegister; sym_kMwpascal]; ACTIONS 11645 [sym_kMessage]; ACTIONS 11647 [sym_kDeprecated];
   ACTIONS 1016 [sym_kExperimental; sym_kPlatform; sym_kUnimplemented; sym_kCvar];
   ACTIONS 11649 [sym_kExport]; ACTIONS 1016 [sym_kFar; sym_kNear; sym_kSafecall; sym_kAssembler;
   sym_kNostackframe; sym_kInterrupt; sym_kNoreturn; sym_kIocheck; sym_kLocal; sym_kHardfloat;
   sym_kSoftfloat; sym_kMs_abi_default; sym_kMs_abi_cdecl; sym_kSaveregisters;
   sym_kSysv_abi_default; sym_kSysv_abi_cdecl; sym_kVectorcall; sym_kVarargs; sym_kWinapi];
   ACTIONS 11651 [sym_kAlias]; ACTIONS 8030 [sym_kBegin; sym_kClass; sym_kConst;
   sym_kConstructor; sym_kDestructor; sym_kEnd; sym_kExports; sym_kFinalization; sym_kFunction;
   sym_kImplementation; sym_kInitialization]; ACTIONS 1016 [sym_kInline];
   ACTIONS 8030 [sym_kInterface; sym_kLabel; sym_kProcedure; sym_kResourcestring; sym_kThreadvar;
   sym_kType; sym_kUses; sym_kVar]].

(** State 1933. *)
Definition ts_parse_table_1933 : parse_row :=
  [STATE 2431 [sym__procAttribute]; STATE 15210 [sym_procAttribute];
   STATE 1935 [aux_sym_declProcFwd_repeat1]; ACTIONS 13048 [anon_sym_LBRACK];
   ACTIONS 8058 [aux_sym_ppUsesBlock_token1]; ACTIONS 3 [sym__space];
   ACTIONS 5 [sym_ppDirective]; ACTIONS 3 [sym_comment]; ACTIONS 8058 [sym_identifier];
   ACTIONS 1016 [sym_kDefault; sym_kNodefault]; ACTIONS 11641 [sym_kDispId];
   ACTIONS 8058 [sym_kGeneric; sym_kOperator]; ACTIONS 11643 [sym_kPublic];
   ACTIONS 1016 [sym_kStatic; sym_kVirtual; sym_kAbstract; sym_kDynamic; sym_kOverride;
   sym_kOverload; sym_kReintroduce; sym_kStdcall; sym_kCdecl; sym_kCppdecl; sym_kPascal;
   sym_kRegister; sym_kMwpascal]; ACTIONS 11645 [sym_kMessage]; ACTIONS 11647 [sym_kDeprecated];
   ACTIONS 1016 [sym_kExperimental; sym_kPlatform; sym_kUnimplemented; sym_kCvar];
   ACTIONS 11649 [sym_kExport]; ACTIONS 1016 [sym_kFar; sym_kNear; sym_kSafecall; sym_kAssembler;
   sym_kNostackframe; sym_kInterrupt; sym_kNoreturn; sym_kIocheck; sym_kLocal; sym_kHardfloat;
   sym_kSoftfloat; sym_kMs_abi_default; sym_kMs_abi_cdecl; sym_kSaveregisters;
   sym_kSysv_abi_default; sym_kSysv_abi_cdecl; sym_kVectorcall; sym_kVarargs; sym_kWinapi];
   ACTIONS 11651 [sym_kAlias]; ACTIONS 8058 [sym_kBegin; sym_kClass; sym_kConst;
   sym_kConstructor; sym_kDestructor; sym_kEnd; sym_kExports; sym_kFinalization; sym_kFunction;
   sym_kImplementation; sym_kInitialization]; ACTIONS 1016 [sym_kInline];
   ACTIONS 8058 [sym_kInterface; sym_kLabel; sym_kProcedure; sym_kResourcestring; sym_kThreadvar;
   sym_kType; sym_kUses; sym_kVar]].

(** State 1934. *)
Definition ts_parse_table_1934 : parse_row :=
  [STATE 2431 [sym__procAttribute]; STATE 15210 [sym_procAttribute];
   STATE 1945 [aux_sym_declProcFwd_repeat1]; ACTIONS 13051 [anon_sym_LBRACK];
   ACTIONS 7546 [aux_sym_ppUsesBlock_token1]; ACTIONS 3 [sym__space];
   ACTIONS 5 [sym_ppDirective]; ACTIONS 3 [sym_comment]; ACTIONS 7546 [sym_identifier];
   ACTIONS 1016 [sym_kDefault; sym_kNodefault]; ACTIONS 11641 [sym_kDispId];
   ACTIONS 7546 [sym_kGeneric; sym_kOperator]; ACTIONS 11643 [sym_kPublic];
   ACTIONS 1016 [sym_kStatic; sym_kVirtual; sym_kAbstract; sym_kDynamic; sym_kOverride;
   sym_kOverload; sym_kReintroduce; sym_kStdcall; sym_kCdecl; sym_kCppdecl; sym_kPascal;
   sym_kRegister; sym_kMwpascal]; ACTIONS 11645 [sym_kMessage]; ACTIONS 11647 [sym_kDeprecated];
   ACTIONS 1016 [sym_kExperimental; sym_kPlatform; sym_kUnimplemented; sym_kCvar];
   ACTIONS 11649 [sym_kExport]; ACTIONS 1016 [sym_kFar; sym_kNear; sym_kSafecall; sym_kAssembler;
   sym_kNostackframe; sym_kInterrupt; sym_kNoreturn; sym_kIocheck; sym_kLocal; sym_kHardfloat;
   sym_kSoftfloat; sym_kMs_abi_default; sym_kMs_abi_cdecl; sym_kSaveregisters;
   sym_kSysv_abi_default; sym_kSysv_abi_cdecl; sym_kVectorcall; sym_kVarargs; sym_kWinapi];
   ACTIONS 11651 [sym_kAlias]; ACTIONS 7546 [sym_kBegin; sym_kClass; sym_kConst;
   sym_kConstructor; sym_kDestructor; sym_kEnd; sym_kExports; sym_kFinalization; sym_kFunction;
   sym_kImplementation; sym_kInitialization]; ACTIONS 1016 [sym_kInline];
   ACTIONS 7546 [sym_kInterface; sym_kLabel; sym_kProcedure; sym_kResourcestring; sym_kThreadvar;
   sym_kType; sym_kUses; sym_kVar]].

(** State 1935. *)
Definition ts_parse_table_1935 : parse_row :=
  [STATE 2431 [sym__procAttribute]; STATE 15210 [sym_procAttribute];
   STATE 1974 [aux_sym_declProcFwd_repeat1]; ACTIONS 13054 [anon_sym_LBRACK];
   ACTIONS 8420 [aux_sym_ppUsesBlock_token1]; ACTIONS 3 [sym__space];
   ACTIONS 5 [sym_ppDirective]; ACTIONS 3 [sym_comment]; ACTIONS 8420 [sym_identifier];
   ACTIONS 1016 [sym_kDefault; sym_kNodefault]; ACTIONS 11641 [sym_kDispId];
   ACTIONS 8420 [sym_kGeneric; sym_kOperator]; ACTIONS 11643 [sym_kPublic];
   ACTIONS 1016 [sym_kStatic; sym_kVirtual; sym_kAbstract; sym_kDynamic; sym_kOverride;
   sym_kOverload; sym_kReintroduce; sym_kStdcall; sym_kCdecl; sym_kCppdecl; sym_kPascal;
   sym_kRegister; sym_kMwpascal]; ACTIONS 11645 [sym_kMessage]; ACTIONS 11647 [sym_kDeprecated];
   ACTIONS 1016 [sym_kExperimental; sym_kPlatform; sym_kUnimplemented; sym_kCvar];
   ACTIONS 11649 [sym_kExport]; ACTIONS 1016 [sym_kFar; sym_kNear; sym_kSafecall; sym_kAssembler;
   sym_kNostackframe; sym_kInterrupt; sym_kNoreturn; sym_kIocheck; sym_kLocal; sym_kHardfloat;
   sym_kSoftfloat; sym_kMs_abi_default; sym_kMs_abi_cdecl; sym_kSaveregisters;
   sym_kSysv_abi_default; sym_kSysv_abi_cdecl; sym_kVectorcall; sym_kVarargs; sym_kWinapi];
   ACTIONS 11651 [sym_kAlias]; ACTIONS 8420 [sym_kBegin; sym_kClass; sym_kConst;
   sym_kConstructor; sym_kDestructor; sym_kEnd; sym_kExports; sym_kFinalization; sym_kFunction;
   sym_kImplementation; sym_kInitialization]; ACTIONS 1016 [sym_kInline];
   ACTIONS 8420 [sym_kInterface; sym_kLabel; sym_kProcedure; sym_kResourcestring; sym_kThreadvar;
   sym_kType; sym_kUses; sym_kVar]].

(** State 1936. *)
Definition ts_parse_table_1936 : parse_row :=
  [STATE 2431 [sym__procAttribute]; STATE 15210 [sym_procAttribute];
   STATE 1946 [aux_sym_declProcFwd_repeat1]; ACTIONS 13057 [anon_sym_LBRACK];
   ACTIONS 7574 [aux_sym_ppUsesBlock_token1]; ACTIONS 3 [sym__space];
   ACTIONS 5 [sym_ppDirective]; ACTIONS 3 [sym_comment]; ACTIONS 7574 [sym_identifier];
   ACTIONS 1016 [sym_kDefault; sym_kNodefault]; ACTIONS 11641 [sym_kDispId];
   ACTIONS 7574 [sym_kGeneric; sym_kOperator]; ACTIONS 11643 [sym_kPublic];
   ACTIONS 1016 [sym_kStatic; sym_kVirtual; sym_kAbstract; sym_kDynamic; sym_kOverride;
   sym_kOverload; sym_kReintroduce; sym_kStdcall; sym_kCdecl; sym_kCppdecl; sym_kPascal;
   sym_kRegister; sym_kMwpascal]; ACTIONS 11645 [sym_kMessage]; ACTIONS 11647 [sym_kDeprecated];
   ACTIONS 1016 [sym_kExperimental; sym_kPlatform; sym_kUnimplemented; sym_kCvar];
   ACTIONS 11649 [sym_kExport]; ACTIONS 1016 [sym_kFar; sym_kNear; sym_kSafecall; sym_kAssembler;
   sym_kNostackframe; sym_kInterrupt; sym_kNoreturn; sym_kIocheck; sym_kLocal; sym_kHardfloat;
   sym_kSoftfloat; sym_kMs_abi_default; sym_kMs_abi_cdecl; sym_kSaveregisters;
   sym_kSysv_abi_default; sym_kSysv_abi_cdecl; sym_kVectorcall; sym_kVarargs; sym_kWinapi];
   ACTIONS 11651 [sym_kAlias]; ACTIONS 7574 [sym_kBegin; sym_kClass; sym_kConst;
   sym_kConstructor; sym_kDestructor; sym_kEnd; sym_kExports; sym_kFinalization; sym_kFunction;
   sym_kImplementation; sym_kInitialization]; ACTIONS 1016 [sym_kInline];
   ACTIONS 7574 [sym_kInterface; sym_kLabel; sym_kProcedure; sym_kResourcestring; sym_kThreadvar;
   sym_kType; sym_kUses; sym_kVar]].

(** State 1937. *)
Definition ts_parse_table_1937 : parse_row :=
  [STATE 2418 [sym__procAttribute]; STATE 14260 [sym_procAttribute];
   STATE 1939 [aux_sym_declProcFwd_repeat1]; ACTIONS 13060 [anon_sym_LBRACK];
   ACTIONS 8448 [aux_sym_ppUsesBlock_token1]; ACTIONS 3 [sym__space];
   ACTIONS 5 [sym_ppDirective]; ACTIONS 3 [sym_comment]; ACTIONS 8448 [sym_identifier];
   ACTIONS 1016 [sym_kDefault; sym_kNodefault]; ACTIONS 11641 [sym_kDispId];
   ACTIONS 8448 [sym_kGeneric; sym_kOperator; sym_kPublished]; ACTIONS 8461 [sym_kPublic];
   ACTIONS 8448 [sym_kProtected; sym_kPrivate; sym_kStrict; sym_kRequired; sym_kOptional];
   ACTIONS 1016 [sym_kStatic; sym_kVirtual; sym_kAbstract; sym_kDynamic; sym_kOverride;
   sym_kOverload; sym_kReintroduce; sym_kStdcall; sym_kCdecl; sym_kCppdecl; sym_kPascal;
   sym_kRegister; sym_kMwpascal]; ACTIONS 11645 [sym_kMessage]; ACTIONS 11647 [sym_kDeprecated];
   ACTIONS 1016 [sym_kExperimental; sym_kPlatform; sym_kUnimplemented; sym_kCvar];
   ACTIONS 11649 [sym_kExport]; ACTIONS 1016 [sym_kFar; sym_kNear; sym_kSafecall; sym_kAssembler;
   sym_kNostackframe; sym_kInterrupt; sym_kNoreturn; sym_kIocheck; sym_kLocal; sym_kHardfloat;
   sym_kSoftfloat; sym_kMs_abi_default; sym_kMs_abi_cdecl; sym_kSaveregisters;
   sym_kSysv_abi_default; sym_kSysv_abi_cdecl; sym_kVectorcall; sym_kVarargs; sym_kWinapi];
   ACTIONS 11651 [sym_kAlias]; ACTIONS 8448 [sym_kCase; sym_kClass; sym_kConst; sym_kConstructor;
   sym_kDestructor; sym_kEnd; sym_kFunction]; ACTIONS 1016 [sym_kInline];
   ACTIONS 8448 [sym_kProcedure; sym_kProperty; sym_kResourcestring; sym_kThreadvar; sym_kType;
   sym_kVar]].

(** State 1938. *)
Definition ts_parse_table_1938 : parse_row :=
  [STATE 2431 [sym__procAttribute]; STATE 15210 [sym_procAttribute];
   STATE 1974 [aux_sym_declProcFwd_repeat1]; ACTIONS 13063 [anon_sym_LBRACK];
   ACTIONS 8476 [aux_sym_ppUsesBlock_token1]; ACTIONS 3 [sym__space];
   ACTIONS 5 [sym_ppDirective]; ACTIONS 3 [sym_comment]; ACTIONS 8476 [sym_identifier];
   ACTIONS 1016 [sym_kDefault; sym_kNodefault]; ACTIONS 11641 [sym_kDispId];
   ACTIONS 8476 [sym_kGeneric; sym_kOperator]; ACTIONS 11643 [sym_kPublic];
   ACTIONS 1016 [sym_kStatic; sym_kVirtual; sym_kAbstract; sym_kDynamic; sym_kOverride;
   sym_kOverload; sym_kReintroduce; sym_kStdcall; sym_kCdecl; sym_kCppdecl; sym_kPascal;
   sym_kRegister; sym_kMwpascal]; ACTIONS 11645 [sym_kMessage]; ACTIONS 11647 [sym_kDeprecated];
   ACTIONS 1016 [sym_kExperimental; sym_kPlatform; sym_kUnimplemented; sym_kCvar];
   ACTIONS 11649 [sym_kExport]; ACTIONS 1016 [sym_kFar; sym_kNear; sym_kSafecall; sym_kAssembler;
   sym_kNostackframe; sym_kInterrupt; sym_kNoreturn; sym_kIocheck; sym_kLocal; sym_kHardfloat;
   sym_kSoftfloat; sym_kMs_abi_default; sym_kMs_abi_cdecl; sym_kSaveregisters;
   sym_kSysv_abi_default; sym_kSysv_abi_cdecl; sym_kVectorcall; sym_kVarargs; sym_kWinapi];
   ACTIONS 11651 [sym_kAlias]; ACTIONS 8476 [sym_kBegin; sym_kClass; sym_kConst;
   sym_kConstructor; sym_kDestructor; sym_kEnd; sym_kExports; sym_kFinalization; sym_kFunction;
   sym_kImplementation; sym_kInitialization]; ACTIONS 1016 [sym_kInline];
   ACTIONS 8476 [sym_kInterface; sym_kLabel; sym_kProcedure; sym_kResourcestring; sym_kThreadvar;
   sym_kType; sym_kUses; sym_kVar]].

(** State 1939. *)
Definition ts_parse_table_1939 : parse_row :=
  [STATE 2418 [sym__procAttribute]; STATE 14260 [sym_procAttribute];
   STATE 1971 [aux_sym_declProcFwd_repeat1]; ACTIONS 13066 [anon_sym_LBRACK];
   ACTIONS 8842 [aux_sym_ppUsesBlock_token1]; ACTIONS 3 [sym__space];
   ACTIONS 5 [sym_ppDirective]; ACTIONS 3 [sym_comment]; ACTIONS 8842 [sym_identifier];
   ACTIONS 1016 [sym_kDefault; sym_kNodefault]; ACTIONS 11641 [sym_kDispId];
   ACTIONS 8842 [sym_kGeneric; sym_kOperator; sym_kPublished]; ACTIONS 8855 [sym_kPublic];
   ACTIONS 8842 [sym_kProtected; sym_kPrivate; sym_kStrict; sym_kRequired; sym_kOptional];
   ACTIONS 1016 [sym_kStatic; sym_kVirtual; sym_kAbstract; sym_kDynamic; sym_kOverride;
   sym_kOverload; sym_kReintroduce; sym_kStdcall; sym_kCdecl; sym_kCppdecl; sym_kPascal;
   sym_kRegister; sym_kMwpascal]; ACTIONS 11645 [sym_kMessage]; ACTIONS 11647 [sym_kDeprecated];
   ACTIONS 1016 [sym_kExperimental; sym_kPlatform; sym_kUnimplemented; sym_kCvar];
   ACTIONS 11649 [sym_kExport]; ACTIONS 1016 [sym_kFar; sym_kNear; sym_kSafecall; sym_kAssembler;
   sym_kNostackframe; sym_kInterrupt; sym_kNoreturn; sym_kIocheck; sym_kLocal; sym_kHardfloat;
   sym_kSoftfloat; sym_kMs_abi_default; sym_kMs_abi_cdecl; sym_kSaveregisters;
   sym_kSysv_abi_default; sym_kSysv_abi_cdecl; sym_kVectorcall; sym_kVarargs; sym_kWinapi];
   ACTIONS 11651 [sym_kAlias]; ACTIONS 8842 [sym_kCase; sym_kClass; sym_kConst; sym_kConstructor;
   sym_kDestructor; sym_kEnd; sym_kFunction]; ACTIONS 1016 [sym_kInline];
   ACTIONS 8842 [sym_kProcedure; sym_kProperty; sym_kResourcestring; sym_kThreadvar; sym_kType;
   sym_kVar]].

(** State 1940. *)
Definition ts_parse_table_1940 : parse_row :=
  [STATE 2418 [sym__procAttribute]; STATE 14260 [sym_procAttribute];
   STATE 1951 [aux_sym_declProcFwd_repeat1]; ACTIONS 13069 [anon_sym_LBRACK];
   ACTIONS 8870 [aux_sym_ppUsesBlock_token1]; ACTIONS 3 [sym__space];
   ACTIONS 5 [sym_ppDirective]; ACTIONS 3 [sym_comment]; ACTIONS 8870 [sym_identifier];
   ACTIONS 1016 [sym_kDefault; sym_kNodefault]; ACTIONS 11641 [sym_kDispId];
   ACTIONS 8870 [sym_kGeneric; sym_kOperator; sym_kPublished]; ACTIONS 8883 [sym_kPublic];
   ACTIONS 8870 [sym_kProtected; sym_kPrivate; sym_kStrict; sym_kRequired; sym_kOptional];
   ACTIONS 1016 [sym_kStatic; sym_kVirtual; sym_kAbstract; sym_kDynamic; sym_kOverride;
   sym_kOverload; sym_kReintroduce; sym_kStdcall; sym_kCdecl; sym_kCppdecl; sym_kPascal;
   sym_kRegister; sym_kMwpascal]; ACTIONS 11645 [sym_kMessage]; ACTIONS 11647 [sym_kDeprecated];
   ACTIONS 1016 [sym_kExperimental; sym_kPlatform; sym_kUnimplemented; sym_kCvar];
   ACTIONS 11649 [sym_kExport]; ACTIONS 1016 [sym_kFar; sym_kNear; sym_kSafecall; sym_kAssembler;
   sym_kNostackframe; sym_kInterrupt; sym_kNoreturn; sym_kIocheck; sym_kLocal; sym_kHardfloat;
   sym_kSoftfloat; sym_kMs_abi_default; sym_kMs_abi_cdecl; sym_kSaveregisters;
   sym_kSysv_abi_default; sym_kSysv_abi_cdecl; sym_kVectorcall; sym_kVarargs; sym_kWinapi];
   ACTIONS 11651 [sym_kAlias]; ACTIONS 8870 [sym_kCase; sym_kClass; sym_kConst; sym_kConstructor;
   sym_kDestructor; sym_kEnd; sym_kFunction]; ACTIONS 1016 [sym_kInline];
   ACTIONS 8870 [sym_kProcedure; sym_kProperty; sym_kResourcestring; sym_kThreadvar; sym_kType;
   sym_kVar]].

(** State 1941. *)
Definition ts_parse_table_1941 : parse_row :=
  [STATE 2431 [sym__procAttribute]; STATE 15210 [sym_procAttribute];
   STATE 1949 [aux_sym_declProcFwd_repeat1]; ACTIONS 13072 [anon_sym_LBRACK];
   ACTIONS 8926 [aux_sym_ppUsesBlock_token1]; ACTIONS 3 [sym__space];
   ACTIONS 5 [sym_ppDirective]; ACTIONS 3 [sym_comment]; ACTIONS 8926 [sym_identifier];
   ACTIONS 1016 [sym_kDefault; sym_kNodefault]; ACTIONS 11641 [sym_kDispId];
   ACTIONS 8926 [sym_kGeneric; sym_kOperator]; ACTIONS 11643 [sym_kPublic];
   ACTIONS 1016 [sym_kStatic; sym_kVirtual; sym_kAbstract; sym_kDynamic; sym_kOverride;
   sym_kOverload; sym_kReintroduce; sym_kStdcall; sym_kCdecl; sym_kCppdecl; sym_kPascal;
   sym_kRegister; sym_kMwpascal]; ACTIONS 11645 [sym_kMessage]; ACTIONS 11647 [sym_kDeprecated];
   ACTIONS 1016 [sym_kExperimental; sym_kPlatform; sym_kUnimplemented; sym_kCvar];
   ACTIONS 11649 [sym_kExport]; ACTIONS 1016 [sym_kFar; sym_kNear; sym_kSafecall; sym_kAssembler;
   sym_kNostackframe; sym_kInterrupt; sym_kNoreturn; sym_kIocheck; sym_kLocal; sym_kHardfloat;
   sym_kSoftfloat; sym_kMs_abi_default; sym_kMs_abi_cdecl; sym_kSaveregisters;
   sym_kSysv_abi_default; sym_kSysv_abi_cdecl; sym_kVectorcall; sym_kVarargs; sym_kWinapi];
   ACTIONS 11651 [sym_kAlias]; ACTIONS 8926 [sym_kBegin; sym_kClass; sym_kConst;
   sym_kConstructor; sym_kDestructor; sym_kEnd; sym_kExports; sym_kFinalization; sym_kFunction;
   sym_kImplementation; sym_kInitialization]; ACTIONS 1016 [sym_kInline];
   ACTIONS 8926 [sym_kInterface; sym_kLabel; sym_kProcedure; sym_kResourcestring; sym_kThreadvar;
   sym_kType; sym_kUses; sym_kVar]].

(** State 1942. *)
Definition ts_parse_table_1942 : parse_row :=
  [STATE 2431 [sym__procAttribute]; STATE 15210 [sym_procAttribute];
   STATE 1948 [aux_sym_declProcFwd_repeat1]; ACTIONS 13075 [anon_sym_LBRACK];
   ACTIONS 8504 [aux_sym_ppUsesBlock_token1]; ACTIONS 3 [sym__space];
   ACTIONS 5 [sym_ppDirective]; ACTIONS 3 [sym_comment]; ACTIONS 8504 [sym_identifier];
   ACTIONS 1016 [sym_kDefault; sym_kNodefault]; ACTIONS 11641 [sym_kDispId];
   ACTIONS 8504 [sym_kGeneric; sym_kOperator]; ACTIONS 11643 [sym_kPublic];
   ACTIONS 1016 [sym_kStatic; sym_kVirtual; sym_kAbstract; sym_kDynamic; sym_kOverride;
   sym_kOverload; sym_kReintroduce; sym_kStdcall; sym_kCdecl; sym_kCppdecl; sym_kPascal;
   sym_kRegister; sym_kMwpascal]; ACTIONS 11645 [sym_kMessage]; ACTIONS 11647 [sym_kDeprecated];
   ACTIONS 1016 [sym_kExperimental; sym_kPlatform; sym_kUnimplemented; sym_kCvar];
   ACTIONS 11649 [sym_kExport]; ACTIONS 1016 [sym_kFar; sym_kNear; sym_kSafecall; sym_kAssembler;
   sym_kNostackframe; sym_kInterrupt; sym_kNoreturn; sym_kIocheck; sym_kLocal; sym_kHardfloat;
   sym_kSoftfloat; sym_kMs_abi_default; sym_kMs_abi_cdecl; sym_kSaveregisters;
   sym_kSysv_abi_default; sym_kSysv_abi_cdecl; sym_kVectorcall; sym_kVarargs; sym_kWinapi];
   ACTIONS 11651 [sym_kAlias]; ACTIONS 8504 [sym_kBegin; sym_kClass; sym_kConst;
   sym_kConstructor; sym_kDestructor; sym_kEnd; sym_kExports; sym_kFinalization; sym_kFunction;
   sym_kImplementation; sym_kInitialization]; ACTIONS 1016 [sym_kInline];
   ACTIONS 8504 [sym_kInterface; sym_kLabel; sym_kProcedure; sym_kResourcestring; sym_kThreadvar;
   sym_kType; sym_kUses; sym_kVar]].

(** State 1943. *)
Definition ts_parse_table_1943 : parse_row :=
  [STATE 2431 [sym__procAttribute]; STATE 15210 [sym_procAttribute];
   STATE 1974 [aux_sym_declProcFwd_repeat1]; ACTIONS 13078 [anon_sym_LBRACK];
   ACTIONS 8532 [aux_sym_ppUsesBlock_token1]; ACTIONS 3 [sym__space];
   ACTIONS 5 [sym_ppDirective]; ACTIONS 3 [sym_comment]; ACTIONS 8532 [sym_identifier];
   ACTIONS 1016 [sym_kDefault; sym_kNodefault]; ACTIONS 11641 [sym_kDispId];
   ACTIONS 8532 [sym_kGeneric; sym_kOperator]; ACTIONS 11643 [sym_kPublic];
   ACTIONS 1016 [sym_kStatic; sym_kVirtual; sym_kAbstract; sym_kDynamic; sym_kOverride;
   sym_kOverload; sym_kReintroduce; sym_kStdcall; sym_kCdecl; sym_kCppdecl; sym_kPascal;
   sym_kRegister; sym_kMwpascal]; ACTIONS 11645 [sym_kMessage]; ACTIONS 11647 [sym_kDeprecated];
   ACTIONS 1016 [sym_kExperimental; sym_kPlatform; sym_kUnimplemented; sym_kCvar];
   ACTIONS 11649 [sym_kExport]; ACTIONS 1016 [sym_kFar; sym_kNear; sym_kSafecall; sym_kAssembler;
   sym_kNostackframe; sym_kInterrupt; sym_kNoreturn; sym_kIocheck; sym_kLocal; sym_kHardfloat;
   sym_kSoftfloat; sym_kMs_abi_default; sym_kMs_abi_cdecl; sym_kSaveregisters;
   sym_kSysv_abi_default; sym_kSysv_abi_cdecl; sym_kVectorcall; sym_kVarargs; sym_kWinapi];
   ACTIONS 11651 [sym_kAlias]; ACTIONS 8532 [sym_kBegin; sym_kClass; sym_kConst;
   sym_kConstructor; sym_kDestructor; sym_kEnd; sym_kExports; sym_kFinalization; sym_kFunction;
   sym_kImplementation; sym_kInitialization]; ACTIONS 1016 [sym_kInline];
   ACTIONS 8532 [sym_kInterface; sym_kLabel; sym_kProcedure; sym_kResourcestring; sym_kThreadvar;
   sym_kType; sym_kUses; sym_kVar]].

(** State 1944. *)
Definition ts_parse_table_1944 : parse_row :=
  [STATE 2431 [sym__procAttribute]; STATE 15210 [sym_procAttribute];
   STATE 1938 [aux_sym_declProcFwd_repeat1]; ACTIONS 13081 [anon_sym_LBRACK];
   ACTIONS 8250 [aux_sym_ppUsesBlock_token1]; ACTIONS 3 [sym__space];
   ACTIONS 5 [sym_ppDirective]; ACTIONS 3 [sym_comment]; ACTIONS 8250 [sym_identifier];
   ACTIONS 1016 [sym_kDefault; sym_kNodefault]; ACTIONS 11641 [sym_kDispId];
   ACTIONS 8250 [sym_kGeneric; sym_kOperator]; ACTIONS 11643 [sym_kPublic];
   ACTIONS 1016 [sym_kStatic; sym_kVirtual; sym_kAbstract; sym_kDynamic; sym_kOverride;
   sym_kOverload; sym_kReintroduce; sym_kStdcall; sym_kCdecl; sym_kCppdecl; sym_kPascal;
   sym_kRegister; sym_kMwpascal]; ACTIONS 11645 [sym_kMessage]; ACTIONS 11647 [sym_kDeprecated];
   ACTIONS 1016 [sym_kExperimental; sym_kPlatform; sym_kUnimplemented; sym_kCvar];
   ACTIONS 11649 [sym_kExport]; ACTIONS 1016 [sym_kFar; sym_kNear; sym_kSafecall; sym_kAssembler;
   sym_kNostackframe; sym_kInterrupt; sym_kNoreturn; sym_kIocheck; sym_kLocal; sym_kHardfloat;
   sym_kSoftfloat; sym_kMs_abi_default; sym_kMs_abi_cdecl; sym_kSaveregisters;
   sym_kSysv_abi_default; sym_kSysv_abi_cdecl; sym_kVectorcall; sym_kVarargs; sym_kWinapi];
   ACTIONS 11651 [sym_kAlias]; ACTIONS 8250 [sym_kBegin; sym_kClass; sym_kConst;
   sym_kConstructor; sym_kDestructor; sym_kEnd; sym_kExports; sym_kFinalization; sym_kFunction;
   sym_kImplementation; sym_kInitialization]; ACTIONS 1016 [sym_kInline];
   ACTIONS 8250 [sym_kInterface; sym_kLabel; sym_kProcedure; sym_kResourcestring; sym_kThreadvar;
   sym_kType; sym_kUses; sym_kVar]].

(** State 1945. *)
Definition ts_parse_table_1945 : parse_row :=
  [STATE 2431 [sym__procAttribute]; STATE 15210 [sym_procAttribute];
   STATE 1974 [aux_sym_declProcFwd_repeat1]; ACTIONS 13084 [anon_sym_LBRACK];
   ACTIONS 8278 [aux_sym_ppUsesBlock_token1]; ACTIONS 3 [sym__space];
   ACTIONS 5 [sym_ppDirective]; ACTIONS 3 [sym_comment]; ACTIONS 8278 [sym_identifier];
   ACTIONS 1016 [sym_kDefault; sym_kNodefault]; ACTIONS 11641 [sym_kDispId];
   ACTIONS 8278 [sym_kGeneric; sym_kOperator]; ACTIONS 11643 [sym_kPublic];
   ACTIONS 1016 [sym_kStatic; sym_kVirtual; sym_kAbstract; sym_kDynamic; sym_kOverride;
   sym_kOverload; sym_kReintroduce; sym_kStdcall; sym_kCdecl; sym_kCppdecl; sym_kPascal;
   sym_kRegister; sym_kMwpascal]; ACTIONS 11645 [sym_kMessage]; ACTIONS 11647 [sym_kDeprecated];
   ACTIONS 1016 [sym_kExperimental; sym_kPlatform; sym_kUnimplemented; sym_kCvar];
   ACTIONS 11649 [sym_kExport]; ACTIONS 1016 [sym_kFar; sym_kNear; sym_kSafecall; sym_kAssembler;
   sym_kNostackframe; sym_kInterrupt; sym_kNoreturn; sym_kIocheck; sym_kLocal; sym_kHardfloat;
   sym_kSoftfloat; sym_kMs_abi_default; sym_kMs_abi_cdecl; sym_kSaveregisters;
   sym_kSysv_abi_default; sym_kSysv_abi_cdecl; sym_kVectorcall; sym_kVarargs; sym_kWinapi];
   ACTIONS 11651 [sym_kAlias]; ACTIONS 8278 [sym_kBegin; sym_kClass; sym_kConst;
   sym_kConstructor; sym_kDestructor; sym_kEnd; sym_kExports; sym_kFinalization; sym_kFunction;
   sym_kImplementation; sym_kInitialization]; ACTIONS 1016 [sym_kInline];
   ACTIONS 8278 [sym_kInterface; sym_kLabel; sym_kProcedure; sym_kResourcestring; sym_kThreadvar;
   sym_kType; sym_kUses; sym_kVar]].

(** State 1946. *)
Definition ts_parse_table_1946 : parse_row :=
  [STATE 2431 [sym__procAttribute]; STATE 15210 [sym_procAttribute];
   STATE 1974 [aux_sym_declProcFwd_repeat1]; ACTIONS 13087 [anon_sym_LBRACK];
   ACTIONS 8308 [aux_sym_ppUsesBlock_token1]; ACTIONS 3 [sym__space];
   ACTIONS 5 [sym_ppDirective]; ACTIONS 3 [sym_comment]; ACTIONS 8308 [sym_identifier];
   ACTIONS 1016 [sym_kDefault; sym_kNodefault]; ACTIONS 11641 [sym_kDispId];
   ACTIONS 8308 [sym_kGeneric; sym_kOperator]; ACTIONS 11643 [sym_kPublic];
   ACTIONS 1016 [sym_kStatic; sym_kVirtual; sym_kAbstract; sym_kDynamic; sym_kOverride;
   sym_kOverload; sym_kReintroduce; sym_kStdcall; sym_kCdecl; sym_kCppdecl; sym_kPascal;
   sym_kRegister; sym_kMwpascal]; ACTIONS 11645 [sym_kMessage]; ACTIONS 11647 [sym_kDeprecated];
   ACTIONS 1016 [sym_kExperimental; sym_kPlatform; sym_kUnimplemented; sym_kCvar];
   ACTIONS 11649 [sym_kExport]; ACTIONS 1016 [sym_kFar; sym_kNear; sym_kSafecall; sym_kAssembler;
   sym_kNostackframe; sym_kInterrupt; sym_kNoreturn; sym_kIocheck; sym_kLocal; sym_kHardfloat;
   sym_kSoftfloat; sym_kMs_abi_default; sym_kMs_abi_cdecl; sym_kSaveregisters;
   sym_kSysv_abi_default; sym_kSysv_abi_cdecl; sym_kVectorcall; sym_kVarargs; sym_kWinapi];
   ACTIONS 11651 [sym_kAlias]; ACTIONS 8308 [sym_kBegin; sym_kClass; sym_kConst;
   sym_kConstructor; sym_kDestructor; sym_kEnd; sym_kExports; sym_kFinalization; sym_kFunction;
   sym_kImplementation; sym_kInitialization]; ACTIONS 1016 [sym_kInline];
   ACTIONS 8308 [sym_kInterface; sym_kLabel; sym_kProcedure; sym_kResourcestring; sym_kThreadvar;
   sym_kType; sym_kUses; sym_kVar]].

(** State 1947. *)
Definition ts_parse_table_1947 : parse_row :=
  [STATE 2431 [sym__procAttribute]; STATE 15210 [sym_procAttribute];
   STATE 1943 [aux_sym_declProcFwd_repeat1]; ACTIONS 13090 [anon_sym_LBRACK];
   ACTIONS 8336 [aux_sym_ppUsesBlock_token1]; ACTIONS 3 [sym__space];
   ACTIONS 5 [sym_ppDirective]; ACTIONS 3 [sym_comment]; ACTIONS 8336 [sym_identifier];
   ACTIONS 1016 [sym_kDefault; sym_kNodefault]; ACTIONS 11641 [sym_kDispId];
   ACTIONS 8336 [sym_kGeneric; sym_kOperator]; ACTIONS 11643 [sym_kPublic];
   ACTIONS 1016 [sym_kStatic; sym_kVirtual; sym_kAbstract; sym_kDynamic; sym_kOverride;
   sym_kOverload; sym_kReintroduce; sym_kStdcall; sym_kCdecl; sym_kCppdecl; sym_kPascal;
   sym_kRegister; sym_kMwpascal]; ACTIONS 11645 [sym_kMessage]; ACTIONS 11647 [sym_kDeprecated];
   ACTIONS 1016 [sym_kExperimental; sym_kPlatform; sym_kUnimplemented; sym_kCvar];
   ACTIONS 11649 [sym_kExport]; ACTIONS 1016 [sym_kFar; sym_kNear; sym_kSafecall; sym_kAssembler;
   sym_kNostackframe; sym_kInterrupt; sym_kNoreturn; sym_kIocheck; sym_kLocal; sym_kHardfloat;
   sym_kSoftfloat; sym_kMs_abi_default; sym_kMs_abi_cdecl; sym_kSaveregisters;
   sym_kSysv_abi_default; sym_kSysv_abi_cdecl; sym_kVectorcall; sym_kVarargs; sym_kWinapi];
   ACTIONS 11651 [sym_kAlias]; ACTIONS 8336 [sym_kBegin; sym_kClass; sym_kConst;
   sym_kConstructor; sym_kDestructor; sym_kEnd; sym_kExports; sym_kFinalization; sym_kFunction;
   sym_kImplementation; sym_kInitialization]; ACTIONS 1016 [sym_kInline];
   ACTIONS 8336 [sym_kInterface; sym_kLabel; sym_kProcedure; sym_kResourcestring; sym_kThreadvar;
   sym_kType; sym_kUses; sym_kVar]].

(** State 1948. *)
Definition ts_parse_table_1948 : parse_row :=
  [STATE 2431 [sym__procAttribute]; STATE 15210 [sym_procAttribute];
   STATE 1974 [aux_sym_declProcFwd_repeat1]; ACTIONS 13093 [anon_sym_LBRACK];
   ACTIONS 8756 [aux_sym_ppUsesBlock_token1]; ACTIONS 3 [sym__space];
   ACTIONS 5 [sym_ppDirective]; ACTIONS 3 [sym_comment]; ACTIONS 8756 [sym_identifier];
   ACTIONS 1016 [sym_kDefault; sym_kNodefault]; ACTIONS 11641 [sym_kDispId];
   ACTIONS 8756 [sym_kGeneric; sym_kOperator]; ACTIONS 11643 [sym_kPublic];
   ACTIONS 1016 [sym_kStatic; sym_kVirtual; sym_kAbstract; sym_kDynamic; sym_kOverride;
   sym_kOverload; sym_kReintroduce; sym_kStdcall; sym_kCdecl; sym_kCppdecl; sym_kPascal;
   sym_kRegister; sym_kMwpascal]; ACTIONS 11645 [sym_kMessage]; ACTIONS 11647 [sym_kDeprecated];
   ACTIONS 1016 [sym_kExperimental; sym_kPlatform; sym_kUnimplemented; sym_kCvar];
   ACTIONS 11649 [sym_kExport]; ACTIONS 1016 [sym_kFar; sym_kNear; sym_kSafecall; sym_kAssembler;
   sym_kNostackframe; sym_kInterrupt; sym_kNoreturn; sym_kIocheck; sym_kLocal; sym_kHardfloat;
   sym_kSoftfloat; sym_kMs_abi_default; sym_kMs_abi_cdecl; sym_kSaveregisters;
   sym_kSysv_abi_default; sym_kSysv_abi_cdecl; sym_kVectorcall; sym_kVarargs; sym_kWinapi];
   ACTIONS 11651 [sym_kAlias]; ACTIONS 8756 [sym_kBegin; sym_kClass; sym_kConst;
   sym_kConstructor; sym_kDestructor; sym_kEnd; sym_kExports; sym_kFinalization; sym_kFunction;
   sym_kImplementation; sym_kInitialization]; ACTIONS 1016 [sym_kInline];
   ACTIONS 8756 [sym_kInterface; sym_kLabel; sym_kProcedure; sym_kResourcestring; sym_kThreadvar;
   sym_kType; sym_kUses; sym_kVar]].

(** State 1949. *)
Definition ts_parse_table_1949 : parse_row :=
  [STATE 2431 [sym__procAttribute]; STATE 15210 [sym_procAttribute];
   STATE 1974 [aux_sym_declProcFwd_repeat1]; ACTIONS 13096 [anon_sym_LBRACK];
   ACTIONS 7602 [aux_sym_ppUsesBlock_token1]; ACTIONS 3 [sym__space];
   ACTIONS 5 [sym_ppDirective]; ACTIONS 3 [sym_comment]; ACTIONS 7602 [sym_identifier];
   ACTIONS 1016 [sym_kDefault; sym_kNodefault]; ACTIONS 11641 [sym_kDispId];
   ACTIONS 7602 [sym_kGeneric; sym_kOperator]; ACTIONS 11643 [sym_kPublic];
   ACTIONS 1016 [sym_kStatic; sym_kVirtual; sym_kAbstract; sym_kDynamic; sym_kOverride;
   sym_kOverload; sym_kReintroduce; sym_kStdcall; sym_kCdecl; sym_kCppdecl; sym_kPascal;
   sym_kRegister; sym_kMwpascal]; ACTIONS 11645 [sym_kMessage]; ACTIONS 11647 [sym_kDeprecated];
   ACTIONS 1016 [sym_kExperimental; sym_kPlatform; sym_kUnimplemented; sym_kCvar];
   ACTIONS 11649 [sym_kExport]; ACTIONS 1016 [sym_kFar; sym_kNear; sym_kSafecall; sym_kAssembler;
   sym_kNostackframe; sym_kInterrupt; sym_kNoreturn; sym_kIocheck; sym_kLocal; sym_kHardfloat;
   sym_kSoftfloat; sym_kMs_abi_default; sym_kMs_abi_cdecl; sym_kSaveregisters;
   sym_kSysv_abi_default; sym_kSysv_abi_cdecl; sym_kVectorcall; sym_kVarargs; sym_kWinapi];
   ACTIONS 11651 [sym_kAlias]; ACTIONS 7602 [sym_kBegin; sym_kClass; sym_kConst;
   sym_kConstructor; sym_kDestructor; sym_kEnd; sym_kExports; sym_kFinalization; sym_kFunction;
   sym_kImplementation; sym_kInitialization]; ACTIONS 1016 [sym_kInline];
   ACTIONS 7602 [sym_kInterface; sym_kLabel; sym_kProcedure; sym_kResourcestring; sym_kThreadvar;
   sym_kType; sym_kUses; sym_kVar]].

(** State 1950. *)
Definition ts_parse_table_1950 : parse_row :=
  [STATE 2418 [sym__procAttribute]; STATE 14260 [sym_procAttribute];
   STATE 1958 [aux_sym_declProcFwd_repeat1]; ACTIONS 13099 [anon_sym_LBRACK];
   ACTIONS 9336 [aux_sym_ppUsesBlock_token1]; ACTIONS 3 [sym__space];
   ACTIONS 5 [sym_ppDirective]; ACTIONS 3 [sym_comment]; ACTIONS 9336 [sym_identifier];
   ACTIONS 1016 [sym_kDefault; sym_kNodefault]; ACTIONS 11641 [sym_kDispId];
   ACTIONS 9336 [sym_kGeneric; sym_kOperator; sym_kPublished]; ACTIONS 9349 [sym_kPublic];
   ACTIONS 9336 [sym_kProtected; sym_kPrivate; sym_kStrict; sym_kRequired; sym_kOptional];
   ACTIONS 1016 [sym_kStatic; sym_kVirtual; sym_kAbstract; sym_kDynamic; sym_kOverride;
   sym_kOverload; sym_kReintroduce; sym_kStdcall; sym_kCdecl; sym_kCppdecl; sym_kPascal;
   sym_kRegister; sym_kMwpascal]; ACTIONS 11645 [sym_kMessage]; ACTIONS 11647 [sym_kDeprecated];
   ACTIONS 1016 [sym_kExperimental; sym_kPlatform; sym_kUnimplemented; sym_kCvar];
   ACTIONS 11649 [sym_kExport]; ACTIONS 1016 [sym_kFar; sym_kNear; sym_kSafecall; sym_kAssembler;
   sym_kNostackframe; sym_kInterrupt; sym_kNoreturn; sym_kIocheck; sym_kLocal; sym_kHardfloat;
   sym_kSoftfloat; sym_kMs_abi_default; sym_kMs_abi_cdecl; sym_kSaveregisters;
   sym_kSysv_abi_default; sym_kSysv_abi_cdecl; sym_kVectorcall; sym_kVarargs; sym_kWinapi];
   ACTIONS 11651 [sym_kAlias]; ACTIONS 9336 [sym_kCase; sym_kClass; sym_kConst; sym_kConstructor;
   sym_kDestructor; sym_kEnd; sym_kFunction]; ACTIONS 1016 [sym_kInline];
   ACTIONS 9336 [sym_kProcedure; sym_kProperty; sym_kResourcestring; sym_kThreadvar; sym_kType;
   sym_kVar]].

(** State 1951. *)
Definition ts_parse_table_1951 : parse_row :=
  [STATE 2418 [sym__procAttribute]; STATE 14260 [sym_procAttribute];
   STATE 1971 [aux_sym_declProcFwd_repeat1]; ACTIONS 13102 [anon_sym_LBRACK];
   ACTIONS 9408 [aux_sym_ppUsesBlock_token1]; ACTIONS 3 [sym__space];
   ACTIONS 5 [sym_ppDirective]; ACTIONS 3 [sym_comment]; ACTIONS 9408 [sym_identifier];
   ACTIONS 1016 [sym_kDefault; sym_kNodefault]; ACTIONS 11641 [sym_kDispId];
   ACTIONS 9408 [sym_kGeneric; sym_kOperator; sym_kPublished]; ACTIONS 9421 [sym_kPublic];
   ACTIONS 9408 [sym_kProtected; sym_kPrivate; sym_kStrict; sym_kRequired; sym_kOptional];
   ACTIONS 1016 [sym_kStatic; sym_kVirtual; sym_kAbstract; sym_kDynamic; sym_kOverride;
   sym_kOverload; sym_kReintroduce; sym_kStdcall; sym_kCdecl; sym_kCppdecl; sym_kPascal;
   sym_kRegister; sym_kMwpascal]; ACTIONS 11645 [sym_kMessage]; ACTIONS 11647 [sym_kDeprecated];
   ACTIONS 1016 [sym_kExperimental; sym_kPlatform; sym_kUnimplemented; sym_kCvar];
   ACTIONS 11649 [sym_kExport]; ACTIONS 1016 [sym_kFar; sym_kNear; sym_kSafecall; sym_kAssembler;
   sym_kNostackframe; sym_kInterrupt; sym_kNoreturn; sym_kIocheck; sym_kLocal; sym_kHardfloat;
   sym_kSoftfloat; sym_kMs_abi_default; sym_kMs_abi_cdecl; sym_kSaveregisters;
   sym_kSysv_abi_default; sym_kSysv_abi_cdecl; sym_kVectorcall; sym_kVarargs; sym_kWinapi];
   ACTIONS 11651 [sym_kAlias]; ACTIONS 9408 [sym_kCase; sym_kClass; sym_kConst; sym_kConstructor;
   sym_kDestructor; sym_kEnd; sym_kFunction]; ACTIONS 1016 [sym_kInline];
   ACTIONS 9408 [sym_kProcedure; sym_kProperty; sym_kResourcestring; sym_kThreadvar; sym_kType;
   sym_kVar]].

(** State 1952. *)
Definition ts_parse_table_1952 : parse_row :=
  [STATE 2418 [sym__procAttribute]; STATE 14260 [sym_procAttribute];
   STATE 1961 [aux_sym_declProcFwd_repeat1]; ACTIONS 13105 [anon_sym_LBRACK];
   ACTIONS 7546 [aux_sym_ppUsesBlock_token1]; ACTIONS 3 [sym__space];
   ACTIONS 5 [sym_ppDirective]; ACTIONS 3 [sym_comment]; ACTIONS 7546 [sym_identifier];
   ACTIONS 1016 [sym_kDefault; sym_kNodefault]; ACTIONS 11641 [sym_kDispId];
   ACTIONS 7546 [sym_kGeneric; sym_kOperator; sym_kPublished]; ACTIONS 7559 [sym_kPublic];
   ACTIONS 7546 [sym_kProtected; sym_kPrivate; sym_kStrict; sym_kRequired; sym_kOptional];
   ACTIONS 1016 [sym_kStatic; sym_kVirtual; sym_kAbstract; sym_kDynamic; sym_kOverride;
   sym_kOverload; sym_kReintroduce; sym_kStdcall; sym_kCdecl; sym_kCppdecl; sym_kPascal;
   sym_kRegister; sym_kMwpascal]; ACTIONS 11645 [sym_kMessage]; ACTIONS 11647 [sym_kDeprecated];
   ACTIONS 1016 [sym_kExperimental; sym_kPlatform; sym_kUnimplemented; sym_kCvar];
   ACTIONS 11649 [sym_kExport]; ACTIONS 1016 [sym_kFar; sym_kNear; sym_kSafecall; sym_kAssembler;
   sym_kNostackframe; sym_kInterrupt; sym_kNoreturn; sym_kIocheck; sym_kLocal; sym_kHardfloat;
   sym_kSoftfloat; sym_kMs_abi_default; sym_kMs_abi_cdecl; sym_kSaveregisters;
   sym_kSysv_abi_default; sym_kSysv_abi_cdecl; sym_kVectorcall; sym_kVarargs; sym_kWinapi];
   ACTIONS 11651 [sym_kAlias]; ACTIONS 7546 [sym_kCase; sym_kClass; sym_kConst; sym_kConstructor;
   sym_kDestructor; sym_kEnd; sym_kFunction]; ACTIONS 1016 [sym_kInline];
   ACTIONS 7546 [sym_kProcedure; sym_kProperty; sym_kResourcestring; sym_kThreadvar; sym_kType;
   sym_kVar]].

(** State 1953. *)
Definition ts_parse_table_1953 : parse_row :=
  [STATE 2418 [sym__procAttribute]; STATE 14260 [sym_procAttribute];
   STATE 1962 [aux_sym_declProcFwd_repeat1]; ACTIONS 13108 [anon_sym_LBRACK];
   ACTIONS 7574 [aux_sym_ppUsesBlock_token1]; ACTIONS 3 [sym__space];
   ACTIONS 5 [sym_ppDirective]; ACTIONS 3 [sym_comment]; ACTIONS 7574 [sym_identifier];
   ACTIONS 1016 [sym_kDefault; sym_kNodefault]; ACTIONS 11641 [sym_kDispId];
   ACTIONS 7574 [sym_kGeneric; sym_kOperator; sym_kPublished]; ACTIONS 7587 [sym_kPublic];
   ACTIONS 7574 [sym_kProtected; sym_kPrivate; sym_kStrict; sym_kRequired; sym_kOptional];
   ACTIONS 1016 [sym_kStatic; sym_kVirtual; sym_kAbstract; sym_kDynamic; sym_kOverride;
   sym_kOverload; sym_kReintroduce; sym_kStdcall; sym_kCdecl; sym_kCppdecl; sym_kPascal;
   sym_kRegister; sym_kMwpascal]; ACTIONS 11645 [sym_kMessage]; ACTIONS 11647 [sym_kDeprecated];
   ACTIONS 1016 [sym_kExperimental; sym_kPlatform; sym_kUnimplemented; sym_kCvar];
   ACTIONS 11649 [sym_kExport]; ACTIONS 1016 [sym_kFar; sym_kNear; sym_kSafecall; sym_kAssembler;
   sym_kNostackframe; sym_kInterrupt; sym_kNoreturn; sym_kIocheck; sym_kLocal; sym_kHardfloat;
   sym_kSoftfloat; sym_kMs_abi_default; sym_kMs_abi_cdecl; sym_kSaveregisters;
   sym_kSysv_abi_default; sym_kSysv_abi_cdecl; sym_kVectorcall; sym_kVarargs; sym_kWinapi];
   ACTIONS 11651 [sym_kAlias]; ACTIONS 7574 [sym_kCase; sym_kClass; sym_kConst; sym_kConstructor;
   sym_kDestructor; sym_kEnd; sym_kFunction]; ACTIONS 1016 [sym_kInline];
   ACTIONS 7574 [sym_kProcedure; sym_kProperty; sym_kResourcestring; sym_kThreadvar; sym_kType;
   sym_kVar]].

(** State 1954. *)
Definition ts_parse_table_1954 : parse_row :=
  [STATE 2418 [sym__procAttribute]; STATE 14260 [sym_procAttribute];
   STATE 1971 [aux_sym_declProcFwd_repeat1]; ACTIONS 13111 [anon_sym_LBRACK];
   ACTIONS 7602 [aux_sym_ppUsesBlock_token1]; ACTIONS 3 [sym__space];
   ACTIONS 5 [sym_ppDirective]; ACTIONS 3 [sym_comment]; ACTIONS 7602 [sym_identifier];
   ACTIONS 1016 [sym_kDefault; sym_kNodefault]; ACTIONS 11641 [sym_kDispId];
   ACTIONS 7602 [sym_kGeneric; sym_kOperator; sym_kPublished]; ACTIONS 7615 [sym_kPublic];
   ACTIONS 7602 [sym_kProtected; sym_kPrivate; sym_kStrict; sym_kRequired; sym_kOptional];
   ACTIONS 1016 [sym_kStatic; sym_kVirtual; sym_kAbstract; sym_kDynamic; sym_kOverride;
   sym_kOverload; sym_kReintroduce; sym_kStdcall; sym_kCdecl; sym_kCppdecl; sym_kPascal;
   sym_kRegister; sym_kMwpascal]; ACTIONS 11645 [sym_kMessage]; ACTIONS 11647 [sym_kDeprecated];
   ACTIONS 1016 [sym_kExperimental; sym_kPlatform; sym_kUnimplemented; sym_kCvar];
   ACTIONS 11649 [sym_kExport]; ACTIONS 1016 [sym_kFar; sym_kNear; sym_kSafecall; sym_kAssembler;
   sym_kNostackframe; sym_kInterrupt; sym_kNoreturn; sym_kIocheck; sym_kLocal; sym_kHardfloat;
   sym_kSoftfloat; sym_kMs_abi_default; sym_kMs_abi_cdecl; sym_kSaveregisters;
   sym_kSysv_abi_default; sym_kSysv_abi_cdecl; sym_kVectorcall; sym_kVarargs; sym_kWinapi];
   ACTIONS 11651 [sym_kAlias]; ACTIONS 7602 [sym_kCase; sym_kClass; sym_kConst; sym_kConstructor;
   sym_kDestructor; sym_kEnd; sym_kFunction]; ACTIONS 1016 [sym_kInline];
   ACTIONS 7602 [sym_kProcedure; sym_kProperty; sym_kResourcestring; sym_kThreadvar; sym_kType;
   sym_kVar]].

(** State 1955. *)
Definition ts_parse_table_1955 : parse_row :=
  [STATE 2434 [sym__procAttribute]; STATE 15557 [sym_procAttribute];
   STATE 1957 [aux_sym_declProcFwd_repeat1]; ACTIONS 13114 [anon_sym_LBRACK];
   ACTIONS 8448 [aux_sym_ppUsesBlock_token1]; ACTIONS 3 [sym__space];
   ACTIONS 5 [sym_ppDirective]; ACTIONS 3 [sym_comment]; ACTIONS 8448 [sym_identifier];
   ACTIONS 1016 [sym_kDefault; sym_kNodefault]; ACTIONS 11641 [sym_kDispId];
   ACTIONS 8448 [sym_kGeneric; sym_kOperator]; ACTIONS 11643 [sym_kPublic];
   ACTIONS 1016 [sym_kStatic; sym_kVirtual; sym_kAbstract; sym_kDynamic; sym_kOverride;
   sym_kOverload; sym_kReintroduce; sym_kStdcall; sym_kCdecl; sym_kCppdecl; sym_kPascal;
   sym_kRegister; sym_kMwpascal]; ACTIONS 11645 [sym_kMessage]; ACTIONS 11647 [sym_kDeprecated];
   ACTIONS 1016 [sym_kExperimental; sym_kPlatform; sym_kUnimplemented; sym_kCvar];
   ACTIONS 11649 [sym_kExport]; ACTIONS 1016 [sym_kFar; sym_kNear; sym_kSafecall; sym_kAssembler;
   sym_kNostackframe; sym_kInterrupt; sym_kNoreturn; sym_kIocheck; sym_kLocal; sym_kHardfloat;
   sym_kSoftfloat; sym_kMs_abi_default; sym_kMs_abi_cdecl; sym_kSaveregisters;
   sym_kSysv_abi_default; sym_kSysv_abi_cdecl; sym_kVectorcall; sym_kVarargs; sym_kWinapi];
   ACTIONS 11651 [sym_kAlias]; ACTIONS 8448 [sym_kClass; sym_kConst; sym_kConstructor;
   sym_kDestructor; sym_kEnd; sym_kExports; sym_kFinalization; sym_kFunction;
   sym_kImplementation; sym_kInitialization]; ACTIONS 1016 [sym_kInline];
   ACTIONS 8448 [sym_kInterface; sym_kLabel; sym_kProcedure; sym_kProperty; sym_kResourcestring;
   sym_kThreadvar; sym_kType; sym_kUses; sym_kVar]].

(** State 1956. *)
Definition ts_parse_table_1956 : parse_row :=
  [STATE 2431 [sym__procAttribute]; STATE 15210 [sym_procAttribute];
   STATE 1932 [aux_sym_declProcFwd_repeat1]; ACTIONS 13117 [anon_sym_LBRACK];
   ACTIONS 9336 [aux_sym_ppUsesBlock_token1]; ACTIONS 3 [sym__space];
   ACTIONS 5 [sym_ppDirective]; ACTIONS 3 [sym_comment]; ACTIONS 9336 [sym_identifier];
   ACTIONS 1016 [sym_kDefault; sym_kNodefault]; ACTIONS 11641 [sym_kDispId];
   ACTIONS 9336 [sym_kGeneric; sym_kOperator]; ACTIONS 11643 [sym_kPublic];
   ACTIONS 1016 [sym_kStatic; sym_kVirtual; sym_kAbstract; sym_kDynamic; sym_kOverride;
   sym_kOverload; sym_kReintroduce; sym_kStdcall; sym_kCdecl; sym_kCppdecl; sym_kPascal;
   sym_kRegister; sym_kMwpascal]; ACTIONS 11645 [sym_kMessage]; ACTIONS 11647 [sym_kDeprecated];
   ACTIONS 1016 [sym_kExperimental; sym_kPlatform; sym_kUnimplemented; sym_kCvar];
   ACTIONS 11649 [sym_kExport]; ACTIONS 1016 [sym_kFar; sym_kNear; sym_kSafecall; sym_kAssembler;
   sym_kNostackframe; sym_kInterrupt; sym_kNoreturn; sym_kIocheck; sym_kLocal; sym_kHardfloat;
   sym_kSoftfloat; sym_kMs_abi_default; sym_kMs_abi_cdecl; sym_kSaveregisters;
   sym_kSysv_abi_default; sym_kSysv_abi_cdecl; sym_kVectorcall; sym_kVarargs; sym_kWinapi];
   ACTIONS 11651 [sym_kAlias]; ACTIONS 9336 [sym_kBegin; sym_kClass; sym_kConst;
   sym_kConstructor; sym_kDestructor; sym_kEnd; sym_kExports; sym_kFinalization; sym_kFunction;
   sym_kImplementation; sym_kInitialization]; ACTIONS 1016 [sym_kInline];
   ACTIONS 9336 [sym_kInterface; sym_kLabel; sym_kProcedure; sym_kResourcestring; sym_kThreadvar;
   sym_kType; sym_kUses; sym_kVar]].

(** State 1957. *)
Definition ts_parse_table_1957 : parse_row :=
  [STATE 2434 [sym__procAttribute]; STATE 15557 [sym_procAttribute];
   STATE 1914 [aux_sym_declProcFwd_repeat1]; ACTIONS 13120 [anon_sym_LBRACK];
   ACTIONS 8842 [aux_sym_ppUsesBlock_token1]; ACTIONS 3 [sym__space];
   ACTIONS 5 [sym_ppDirective]; ACTIONS 3 [sym_comment]; ACTIONS 8842 [sym_identifier];
   ACTIONS 1016 [sym_kDefault; sym_kNodefault]; ACTIONS 11641 [sym_kDispId];
   ACTIONS 8842 [sym_kGeneric; sym_kOperator]; ACTIONS 11643 [sym_kPublic];
   ACTIONS 1016 [sym_kStatic; sym_kVirtual; sym_kAbstract; sym_kDynamic; sym_kOverride;
   sym_kOverload; sym_kReintroduce; sym_kStdcall; sym_kCdecl; sym_kCppdecl; sym_kPascal;
   sym_kRegister; sym_kMwpascal]; ACTIONS 11645 [sym_kMessage]; ACTIONS 11647 [sym_kDeprecated];
   ACTIONS 1016 [sym_kExperimental; sym_kPlatform; sym_kUnimplemented; sym_kCvar];
   ACTIONS 11649 [sym_kExport]; ACTIONS 1016 [sym_kFar; sym_kNear; sym_kSafecall; sym_kAssembler;
   sym_kNostackframe; sym_kInterrupt; sym_kNoreturn; sym_kIocheck; sym_kLocal; sym_kHardfloat;
   sym_kSoftfloat; sym_kMs_abi_default; sym_kMs_abi_cdecl; sym_kSaveregisters;
   sym_kSysv_abi_default; sym_kSysv_abi_cdecl; sym_kVectorcall; sym_kVarargs; sym_kWinapi];
   ACTIONS 11651 [sym_kAlias]; ACTIONS 8842 [sym_kClass; sym_kConst; sym_kConstructor;
   sym_kDestructor; sym_kEnd; sym_kExports; sym_kFinalization; sym_kFunction;
   sym_kImplementation; sym_kInitialization]; ACTIONS 1016 [sym_kInline];
   ACTIONS 8842 [sym_kInterface; sym_kLabel; sym_kProcedure; sym_kProperty; sym_kResourcestring;
   sym_kThreadvar; sym_kType; sym_kUses; sym_kVar]].

(** State 1958. *)
Definition ts_parse_table_1958 : parse_row :=
  [STATE 2418 [sym__procAttribute]; STATE 14260 [sym_procAttribute];
   STATE 1971 [aux_sym_declProcFwd_repeat1]; ACTIONS 13123 [anon_sym_LBRACK];
   ACTIONS 8030 [aux_sym_ppUsesBlock_token1]; ACTIONS 3 [sym__space];
   ACTIONS 5 [sym_ppDirective]; ACTIONS 3 [sym_comment]; ACTIONS 8030 [sym_identifier];
   ACTIONS 1016 [sym_kDefault; sym_kNodefault]; ACTIONS 11641 [sym_kDispId];
   ACTIONS 8030 [sym_kGeneric; sym_kOperator; sym_kPublished]; ACTIONS 8043 [sym_kPublic];
   ACTIONS 8030 [sym_kProtected; sym_kPrivate; sym_kStrict; sym_kRequired; sym_kOptional];
   ACTIONS 1016 [sym_kStatic; sym_kVirtual; sym_kAbstract; sym_kDynamic; sym_kOverride;
   sym_kOverload; sym_kReintroduce; sym_kStdcall; sym_kCdecl; sym_kCppdecl; sym_kPascal;
   sym_kRegister; sym_kMwpascal]; ACTIONS 11645 [sym_kMessage]; ACTIONS 11647 [sym_kDeprecated];
   ACTIONS 1016 [sym_kExperimental; sym_kPlatform; sym_kUnimplemented; sym_kCvar];
   ACTIONS 11649 [sym_kExport]; ACTIONS 1016 [sym_kFar; sym_kNear; sym_kSafecall; sym_kAssembler;
   sym_kNostackframe; sym_kInterrupt; sym_kNoreturn; sym_kIocheck; sym_kLocal; sym_kHardfloat;
   sym_kSoftfloat; sym_kMs_abi_default; sym_kMs_abi_cdecl; sym_kSaveregisters;
   sym_kSysv_abi_default; sym_kSysv_abi_cdecl; sym_kVectorcall; sym_kVarargs; sym_kWinapi];
   ACTIONS 11651 [sym_kAlias]; ACTIONS 8030 [sym_kCase; sym_kClass; sym_kConst; sym_kConstructor;
   sym_kDestructor; sym_kEnd; sym_kFunction]; ACTIONS 1016 [sym_kInline];
   ACTIONS 8030 [sym_kProcedure; sym_kProperty; sym_kResourcestring; sym_kThreadvar; sym_kType;
   sym_kVar]].

(** State 1959. *)
Definition ts_parse_table_1959 : parse_row :=
  [STATE 2418 [sym__procAttribute]; STATE 14260 [sym_procAttribute];
   STATE 1965 [aux_sym_declProcFwd_repeat1]; ACTIONS 13126 [anon_sym_LBRACK];
   ACTIONS 8058 [aux_sym_ppUsesBlock_token1]; ACTIONS 3 [sym__space];
   ACTIONS 5 [sym_ppDirective]; ACTIONS 3 [sym_comment]; ACTIONS 8058 [sym_identifier];
   ACTIONS 1016 [sym_kDefault; sym_kNodefault]; ACTIONS 11641 [sym_kDispId];
   ACTIONS 8058 [sym_kGeneric; sym_kOperator; sym_kPublished]; ACTIONS 8071 [sym_kPublic];
   ACTIONS 8058 [sym_kProtected; sym_kPrivate; sym_kStrict; sym_kRequired; sym_kOptional];
   ACTIONS 1016 [sym_kStatic; sym_kVirtual; sym_kAbstract; sym_kDynamic; sym_kOverride;
   sym_kOverload; sym_kReintroduce; sym_kStdcall; sym_kCdecl; sym_kCppdecl; sym_kPascal;
   sym_kRegister; sym_kMwpascal]; ACTIONS 11645 [sym_kMessage]; ACTIONS 11647 [sym_kDeprecated];
   ACTIONS 1016 [sym_kExperimental; sym_kPlatform; sym_kUnimplemented; sym_kCvar];
   ACTIONS 11649 [sym_kExport]; ACTIONS 1016 [sym_kFar; sym_kNear; sym_kSafecall; sym_kAssembler;
   sym_kNostackframe; sym_kInterrupt; sym_kNoreturn; sym_kIocheck; sym_kLocal; sym_kHardfloat;
   sym_kSoftfloat; sym_kMs_abi_default; sym_kMs_abi_cdecl; sym_kSaveregisters;
   sym_kSysv_abi_default; sym_kSysv_abi_cdecl; sym_kVectorcall; sym_kVarargs; sym_kWinapi];
   ACTIONS 11651 [sym_kAlias]; ACTIONS 8058 [sym_kCase; sym_kClass; sym_kConst; sym_kConstructor;
   sym_kDestructor; sym_kEnd; sym_kFunction]; ACTIONS 1016 [sym_kInline];
   ACTIONS 8058 [sym_kProcedure; sym_kProperty; sym_kResourcestring; sym_kThreadvar; sym_kType;
   sym_kVar]].

(** State 1960. *)
Definition ts_parse_table_1960 : parse_row :=
  [STATE 2418 [sym__procAttribute]; STATE 14260 [sym_procAttribute];
   STATE 1966 [aux_sym_declProcFwd_repeat1]; ACTIONS 13129 [anon_sym_LBRACK];
   ACTIONS 8250 [aux_sym_ppUsesBlock_token1]; ACTIONS 3 [sym__space];
   ACTIONS 5 [sym_ppDirective]; ACTIONS 3 [sym_comment]; ACTIONS 8250 [sym_identifier];
   ACTIONS 1016 [sym_kDefault; sym_kNodefault]; ACTIONS 11641 [sym_kDispId];
   ACTIONS 8250 [sym_kGeneric; sym_kOperator; sym_kPublished]; ACTIONS 8263 [sym_kPublic];
   ACTIONS 8250 [sym_kProtected; sym_kPrivate; sym_kStrict; sym_kRequired; sym_kOptional];
   ACTIONS 1016 [sym_kStatic; sym_kVirtual; sym_kAbstract; sym_kDynamic; sym_kOverride;
   sym_kOverload; sym_kReintroduce; sym_kStdcall; sym_kCdecl; sym_kCppdecl; sym_kPascal;
   sym_kRegister; sym_kMwpascal]; ACTIONS 11645 [sym_kMessage]; ACTIONS 11647 [sym_kDeprecated];
   ACTIONS 1016 [sym_kExperimental; sym_kPlatform; sym_kUnimplemented; sym_kCvar];
   ACTIONS 11649 [sym_kExport]; ACTIONS 1016 [sym_kFar; sym_kNear; sym_kSafecall; sym_kAssembler;
   sym_kNostackframe; sym_kInterrupt; sym_kNoreturn; sym_kIocheck; sym_kLocal; sym_kHardfloat;
   sym_kSoftfloat; sym_kMs_abi_default; sym_kMs_abi_cdecl; sym_kSaveregisters;
   sym_kSysv_abi_default; sym_kSysv_abi_cdecl; sym_kVectorcall; sym_kVarargs; sym_kWinapi];
   ACTIONS 11651 [sym_kAlias]; ACTIONS 8250 [sym_kCase; sym_kClass; sym_kConst; sym_kConstructor;
   sym_kDestructor; sym_kEnd; sym_kFunction]; ACTIONS 1016 [sym_kInline];
   ACTIONS 8250 [sym_kProcedure; sym_kProperty; sym_kResourcestring; sym_kThreadvar; sym_kType;
   sym_kVar]].

(** State 1961. *)
Definition ts_parse_table_1961 : parse_row :=
  [STATE 2418 [sym__procAttribute]; STATE 14260 [sym_procAttribute];
   STATE 1971 [aux_sym_declProcFwd_repeat1]; ACTIONS 13132 [anon_sym_LBRACK];
   ACTIONS 8278 [aux_sym_ppUsesBlock_token1]; ACTIONS 3 [sym__space];
   ACTIONS 5 [sym_ppDirective]; ACTIONS 3 [sym_comment]; ACTIONS 8278 [sym_identifier];
   ACTIONS 1016 [sym_kDefault; sym_kNodefault]; ACTIONS 11641 [sym_kDispId];
   ACTIONS 8278 [sym_kGeneric; sym_kOperator; sym_kPublished]; ACTIONS 8291 [sym_kPublic];
   ACTIONS 8278 [sym_kProtected; sym_kPrivate; sym_kStrict; sym_kRequired; sym_kOptional];
   ACTIONS 1016 [sym_kStatic; sym_kVirtual; sym_kAbstract; sym_kDynamic; sym_kOverride;
   sym_kOverload; sym_kReintroduce; sym_kStdcall; sym_kCdecl; sym_kCppdecl; sym_kPascal;
   sym_kRegister; sym_kMwpascal]; ACTIONS 11645 [sym_kMessage]; ACTIONS 11647 [sym_kDeprecated];
   ACTIONS 1016 [sym_kExperimental; sym_kPlatform; sym_kUnimplemented; sym_kCvar];
   ACTIONS 11649 [sym_kExport]; ACTIONS 1016 [sym_kFar; sym_kNear; sym_kSafecall; sym_kAssembler;
   sym_kNostackframe; sym_kInterrupt; sym_kNoreturn; sym_kIocheck; sym_kLocal; sym_kHardfloat;
   sym_kSoftfloat; sym_kMs_abi_default; sym_kMs_abi_cdecl; sym_kSaveregisters;
   sym_kSysv_abi_default; sym_kSysv_abi_cdecl; sym_kVectorcall; sym_kVarargs; sym_kWinapi];
   ACTIONS 11651 [sym_kAlias]; ACTIONS 8278 [sym_kCase; sym_kClass; sym_kConst; sym_kConstructor;
   sym_kDestructor; sym_kEnd; sym_kFunction]; ACTIONS 1016 [sym_kInline];
   ACTIONS 8278 [sym_kProcedure; sym_kProperty; sym_kResourcestring; sym_kThreadvar; sym_kType;
   sym_kVar]].

(** State 1962. *)
Definition ts_parse_table_1962 : parse_row :=
  [STATE 2418 [sym__procAttribute]; STATE 14260 [sym_procAttribute];
   STATE 1971 [aux_sym_declProcFwd_repeat1]; ACTIONS 13135 [anon_sym_LBRACK];
   ACTIONS 8308 [aux_sym_ppUsesBlock_token1]; ACTIONS 3 [sym__space];
   ACTIONS 5 [sym_ppDirective]; ACTIONS 3 [sym_comment]; ACTIONS 8308 [sym_identifier];
   ACTIONS 1016 [sym_kDefault; sym_kNodefault]; ACTIONS 11641 [sym_kDispId];
   ACTIONS 8308 [sym_kGeneric; sym_kOperator; sym_kPublished]; ACTIONS 8321 [sym_kPublic];
   ACTIONS 8308 [sym_kProtected; sym_kPrivate; sym_kStrict; sym_kRequired; sym_kOptional];
   ACTIONS 1016 [sym_kStatic; sym_kVirtual; sym_kAbstract; sym_kDynamic; sym_kOverride;
   sym_kOverload; sym_kReintroduce; sym_kStdcall; sym_kCdecl; sym_kCppdecl; sym_kPascal;
   sym_kRegister; sym_kMwpascal]; ACTIONS 11645 [sym_kMessage]; ACTIONS 11647 [sym_kDeprecated];
   ACTIONS 1016 [sym_kExperimental; sym_kPlatform; sym_kUnimplemented; sym_kCvar];
   ACTIONS 11649 [sym_kExport]; ACTIONS 1016 [sym_kFar; sym_kNear; sym_kSafecall; sym_kAssembler;
   sym_kNostackframe; sym_kInterrupt; sym_kNoreturn; sym_kIocheck; sym_kLocal; sym_kHardfloat;
   sym_kSoftfloat; sym_kMs_abi_default; sym_kMs_abi_cdecl; sym_kSaveregisters;
   sym_kSysv_abi_default; sym_kSysv_abi_cdecl; sym_kVectorcall; sym_kVarargs; sym_kWinapi];
   ACTIONS 11651 [sym_kAlias]; ACTIONS 8308 [sym_kCase; sym_kClass; sym_kConst; sym_kConstructor;
   sym_kDestructor; sym_kEnd; sym_kFunction]; ACTIONS 1016 [sym_kInline];
   ACTIONS 8308 [sym_kProcedure; sym_kProperty; sym_kResourcestring; sym_kThreadvar; sym_kType;
   sym_kVar]].

(** State 1963. *)
Definition ts_parse_table_1963 : parse_row :=
  [STATE 2418 [sym__procAttribute]; STATE 14260 [sym_procAttribute];
   STATE 1968 [aux_sym_declProcFwd_repeat1]; ACTIONS 13138 [anon_sym_LBRACK];
   ACTIONS 8336 [aux_sym_ppUsesBlock_token1]; ACTIONS 3 [sym__space];
   ACTIONS 5 [sym_ppDirective]; ACTIONS 3 [sym_comment]; ACTIONS 8336 [sym_identifier];
   ACTIONS 1016 [sym_kDefault; sym_kNodefault]; ACTIONS 11641 [sym_kDispId];
   ACTIONS 8336 [sym_kGeneric; sym_kOperator; sym_kPublished]; ACTIONS 8349 [sym_kPublic];
   ACTIONS 8336 [sym_kProtected; sym_kPrivate; sym_kStrict; sym_kRequired; sym_kOptional];
   ACTIONS 1016 [sym_kStatic; sym_kVirtual; sym_kAbstract; sym_kDynamic; sym_kOverride;
   sym_kOverload; sym_kReintroduce; sym_kStdcall; sym_kCdecl; sym_kCppdecl; sym_kPascal;
   sym_kRegister; sym_kMwpascal]; ACTIONS 11645 [sym_kMessage]; ACTIONS 11647 [sym_kDeprecated];
   ACTIONS 1016 [sym_kExperimental; sym_kPlatform; sym_kUnimplemented; sym_kCvar];
   ACTIONS 11649 [sym_kExport]; ACTIONS 1016 [sym_kFar; sym_kNear; sym_kSafecall; sym_kAssembler;
   sym_kNostackframe; sym_kInterrupt; sym_kNoreturn; sym_kIocheck; sym_kLocal; sym_kHardfloat;
   sym_kSoftfloat; sym_kMs_abi_default; sym_kMs_abi_cdecl; sym_kSaveregisters;
   sym_kSysv_abi_default; sym_kSysv_abi_cdecl; sym_kVectorcall; sym_kVarargs; sym_kWinapi];
   ACTIONS 11651 [sym_kAlias]; ACTIONS 8336 [sym_kCase; sym_kClass; sym_kConst; sym_kConstructor;
   sym_kDestructor; sym_kEnd; sym_kFunction]; ACTIONS 1016 [sym_kInline];
   ACTIONS 8336 [sym_kProcedure; sym_kProperty; sym_kResourcestring; sym_kThreadvar; sym_kType;
   sym_kVar]].

(** State 1964. *)
Definition ts_parse_table_1964 : parse_row :=
  [STATE 2434 [sym__procAttribute]; STATE 15557 [sym_procAttribute];
   STATE 1919 [aux_sym_declProcFwd_repeat1]; ACTIONS 13141 [anon_sym_LBRACK];
   ACTIONS 8926 [aux_sym_ppUsesBlock_token1]; ACTIONS 3 [sym__space];
   ACTIONS 5 [sym_ppDirective]; ACTIONS 3 [sym_comment]; ACTIONS 8926 [sym_identifier];
   ACTIONS 1016 [sym_kDefault; sym_kNodefault]; ACTIONS 11641 [sym_kDispId];
   ACTIONS 8926 [sym_kGeneric; sym_kOperator]; ACTIONS 11643 [sym_kPublic];
   ACTIONS 1016 [sym_kStatic; sym_kVirtual; sym_kAbstract; sym_kDynamic; sym_kOverride;
   sym_kOverload; sym_kReintroduce; sym_kStdcall; sym_kCdecl; sym_kCppdecl; sym_kPascal;
   sym_kRegister; sym_kMwpascal]; ACTIONS 11645 [sym_kMessage]; ACTIONS 11647 [sym_kDeprecated];
   ACTIONS 1016 [sym_kExperimental; sym_kPlatform; sym_kUnimplemented; sym_kCvar];
   ACTIONS 11649 [sym_kExport]; ACTIONS 1016 [sym_kFar; sym_kNear; sym_kSafecall; sym_kAssembler;
   sym_kNostackframe; sym_kInterrupt; sym_kNoreturn; sym_kIocheck; sym_kLocal; sym_kHardfloat;
   sym_kSoftfloat; sym_kMs_abi_default; sym_kMs_abi_cdecl; sym_kSaveregisters;
   sym_kSysv_abi_default; sym_kSysv_abi_cdecl; sym_kVectorcall; sym_kVarargs; sym_kWinapi];
   ACTIONS 11651 [sym_kAlias]; ACTIONS 8926 [sym_kClass; sym_kConst; sym_kConstructor;
   sym_kDestructor; sym_kEnd; sym_kExports; sym_kFinalization; sym_kFunction;
   sym_kImplementation; sym_kInitialization]; ACTIONS 1016 [sym_kInline];
   ACTIONS 8926 [sym_kInterface; sym_kLabel; sym_kProcedure; sym_kProperty; sym_kResourcestring;
   sym_kThreadvar; sym_kType; sym_kUses; sym_kVar]].

(** State 1965. *)
Definition ts_parse_table_1965 : parse_row :=
  [STATE 2418 [sym__procAttribute]; STATE 14260 [sym_procAttribute];
   STATE 1971 [aux_sym_declProcFwd_repeat1]; ACTIONS 13144 [anon_sym_LBRACK];
   ACTIONS 8420 [aux_sym_ppUsesBlock_token1]; ACTIONS 3 [sym__space];
   ACTIONS 5 [sym_ppDirective]; ACTIONS 3 [sym_comment]; ACTIONS 8420 [sym_identifier];
   ACTIONS 1016 [sym_kDefault; sym_kNodefault]; ACTIONS 11641 [sym_kDispId];
   ACTIONS 8420 [sym_kGeneric; sym_kOperator; sym_kPublished]; ACTIONS 8433 [sym_kPublic];
   ACTIONS 8420 [sym_kProtected; sym_kPrivate; sym_kStrict; sym_kRequired; sym_kOptional];
   ACTIONS 1016 [sym_kStatic; sym_kVirtual; sym_kAbstract; sym_kDynamic; sym_kOverride;
   sym_kOverload; sym_kReintroduce; sym_kStdcall; sym_kCdecl; sym_kCppdecl; sym_kPascal;
   sym_kRegister; sym_kMwpascal]; ACTIONS 11645 [sym_kMessage]; ACTIONS 11647 [sym_kDeprecated];
   ACTIONS 1016 [sym_kExperimental; sym_kPlatform; sym_kUnimplemented; sym_kCvar];
   ACTIONS 11649 [sym_kExport]; ACTIONS 1016 [sym_kFar; sym_kNear; sym_kSafecall; sym_kAssembler;
   sym_kNostackframe; sym_kInterrupt; sym_kNoreturn; sym_kIocheck; sym_kLocal; sym_kHardfloat;
   sym_kSoftfloat; sym_kMs_abi_default; sym_kMs_abi_cdecl; sym_kSaveregisters;
   sym_kSysv_abi_default; sym_kSysv_abi_cdecl; sym_kVectorcall; sym_kVarargs; sym_kWinapi];
   ACTIONS 11651 [sym_kAlias]; ACTIONS 8420 [sym_kCase; sym_kClass; sym_kConst; sym_kConstructor;
   sym_kDestructor; sym_kEnd; sym_kFunction]; ACTIONS 1016 [sym_kInline];
   ACTIONS 8420 [sym_kProcedure; sym_kProperty; sym_kResourcestring; sym_kThreadvar; sym_kType;
   sym_kVar]].

(** State 1966. *)
Definition ts_parse_table_1966 : parse_row :=
  [STATE 2418 [sym__procAttribute]; STATE 14260 [sym_procAttribute];
   STATE 1971 [aux_sym_declProcFwd_repeat1]; ACTIONS 13147 [anon_sym_LBRACK];
   ACTIONS 8476 [aux_sym_ppUsesBlock_token1]; ACTIONS 3 [sym__space];
   ACTIONS 5 [sym_ppDirective]; ACTIONS 3 [sym_comment]; ACTIONS 8476 [sym_identifier];
   ACTIONS 1016 [sym_kDefault; sym_kNodefault]; ACTIONS 11641 [sym_kDispId];
   ACTIONS 8476 [sym_kGeneric; sym_kOperator; sym_kPublished]; ACTIONS 8489 [sym_kPublic];
   ACTIONS 8476 [sym_kProtected; sym_kPrivate; sym_kStrict; sym_kRequired; sym_kOptional];
   ACTIONS 1016 [sym_kStatic; sym_kVirtual; sym_kAbstract; sym_kDynamic; sym_kOverride;
   sym_kOverload; sym_kReintroduce; sym_kStdcall; sym_kCdecl; sym_kCppdecl; sym_kPascal;
   sym_kRegister; sym_kMwpascal]; ACTIONS 11645 [sym_kMessage]; ACTIONS 11647 [sym_kDeprecated];
   ACTIONS 1016 [sym_kExperimental; sym_kPlatform; sym_kUnimplemented; sym_kCvar];
   ACTIONS 11649 [sym_kExport]; ACTIONS 1016 [sym_kFar; sym_kNear; sym_kSafecall; sym_kAssembler;
   sym_kNostackframe; sym_kInterrupt; sym_kNoreturn; sym_kIocheck; sym_kLocal; sym_kHardfloat;
   sym_kSoftfloat; sym_kMs_abi_default; sym_kMs_abi_cdecl; sym_kSaveregisters;
   sym_kSysv_abi_default; sym_kSysv_abi_cdecl; sym_kVectorcall; sym_kVarargs; sym_kWinapi];
   ACTIONS 11651 [sym_kAlias]; ACTIONS 8476 [sym_kCase; sym_kClass; sym_kConst; sym_kConstructor;
   sym_kDestructor; sym_kEnd; sym_kFunction]; ACTIONS 1016 [sym_kInline];
   ACTIONS 8476 [sym_kProcedure; sym_kProperty; sym_kResourcestring; sym_kThreadvar; sym_kType;
   sym_kVar]].

(** State 1967. *)
Definition ts_parse_table_1967 : parse_row :=
  [STATE 2418 [sym__procAttribute]; STATE 14260 [sym_procAttribute];
   STATE 1969 [aux_sym_declProcFwd_repeat1]; ACTIONS 13150 [anon_sym_LBRACK];
   ACTIONS 8504 [aux_sym_ppUsesBlock_token1]; ACTIONS 3 [sym__space];
   ACTIONS 5 [sym_ppDirective]; ACTIONS 3 [sym_comment]; ACTIONS 8504 [sym_identifier];
   ACTIONS 1016 [sym_kDefault; sym_kNodefault]; ACTIONS 11641 [sym_kDispId];
   ACTIONS 8504 [sym_kGeneric; sym_kOperator; sym_kPublished]; ACTIONS 8517 [sym_kPublic];
   ACTIONS 8504 [sym_kProtected; sym_kPrivate; sym_kStrict; sym_kRequired; sym_kOptional];
   ACTIONS 1016 [sym_kStatic; sym_kVirtual; sym_kAbstract; sym_kDynamic; sym_kOverride;
   sym_kOverload; sym_kReintroduce; sym_kStdcall; sym_kCdecl; sym_kCppdecl; sym_kPascal;
   sym_kRegister; sym_kMwpascal]; ACTIONS 11645 [sym_kMessage]; ACTIONS 11647 [sym_kDeprecated];
   ACTIONS 1016 [sym_kExperimental; sym_kPlatform; sym_kUnimplemented; sym_kCvar];
   ACTIONS 11649 [sym_kExport]; ACTIONS 1016 [sym_kFar; sym_kNear; sym_kSafecall; sym_kAssembler;
   sym_kNostackframe; sym_kInterrupt; sym_kNoreturn; sym_kIocheck; sym_kLocal; sym_kHardfloat;
   sym_kSoftfloat; sym_kMs_abi_default; sym_kMs_abi_cdecl; sym_kSaveregisters;
   sym_kSysv_abi_default; sym_kSysv_abi_cdecl; sym_kVectorcall; sym_kVarargs; sym_kWinapi];
   ACTIONS 11651 [sym_kAlias]; ACTIONS 8504 [sym_kCase; sym_kClass; sym_kConst; sym_kConstructor;
   sym_kDestructor; sym_kEnd; sym_kFunction]; ACTIONS 1016 [sym_kInline];
   ACTIONS 8504 [sym_kProcedure; sym_kProperty; sym_kResourcestring; sym_kThreadvar; sym_kType;
   sym_kVar]].

(** State 1968. *)
Definition ts_parse_table_1968 : parse_row :=
  [STATE 2418 [sym__procAttribute]; STATE 14260 [sym_procAttribute];
   STATE 1971 [aux_sym_declProcFwd_repeat1]; ACTIONS 13153 [anon_sym_LBRACK];
   ACTIONS 8532 [aux_sym_ppUsesBlock_token1]; ACTIONS 3 [sym__space];
   ACTIONS 5 [sym_ppDirective]; ACTIONS 3 [sym_comment]; ACTIONS 8532 [sym_identifier];
   ACTIONS 1016 [sym_kDefault; sym_kNodefault]; ACTIONS 11641 [sym_kDispId];
   ACTIONS 8532 [sym_kGeneric; sym_kOperator; sym_kPublished]; ACTIONS 8545 [sym_kPublic];
   ACTIONS 8532 [sym_kProtected; sym_kPrivate; sym_kStrict; sym_kRequired; sym_kOptional];
   ACTIONS 1016 [sym_kStatic; sym_kVirtual; sym_kAbstract; sym_kDynamic; sym_kOverride;
   sym_kOverload; sym_kReintroduce; sym_kStdcall; sym_kCdecl; sym_kCppdecl; sym_kPascal;
   sym_kRegister; sym_kMwpascal]; ACTIONS 11645 [sym_kMessage]; ACTIONS 11647 [sym_kDeprecated];
   ACTIONS 1016 [sym_kExperimental; sym_kPlatform; sym_kUnimplemented; sym_kCvar];
   ACTIONS 11649 [sym_kExport]; ACTIONS 1016 [sym_kFar; sym_kNear; sym_kSafecall; sym_kAssembler;
   sym_kNostackframe; sym_kInterrupt; sym_kNoreturn; sym_kIocheck; sym_kLocal; sym_kHardfloat;
   sym_kSoftfloat; sym_kMs_abi_default; sym_kMs_abi_cdecl; sym_kSaveregisters;
   sym_kSysv_abi_default; sym_kSysv_abi_cdecl; sym_kVectorcall; sym_kVarargs; sym_kWinapi];
   ACTIONS 11651 [sym_kAlias]; ACTIONS 8532 [sym_kCase; sym_kClass; sym_kConst; sym_kConstructor;
   sym_kDestructor; sym_kEnd; sym_kFunction]; ACTIONS 1016 [sym_kInline];
   ACTIONS 8532 [sym_kProcedure; sym_kProperty; sym_kResourcestring; sym_kThreadvar; sym_kType;
   sym_kVar]].

(** State 1969. *)
Definition ts_parse_table_1969 : parse_row :=
  [STATE 2418 [sym__procAttribute]; STATE 14260 [sym_procAttribute];
   STATE 1971 [aux_sym_declProcFwd_repeat1]; ACTIONS 13156 [anon_sym_LBRACK];
   ACTIONS 8756 [aux_sym_ppUsesBlock_token1]; ACTIONS 3 [sym__space];
   ACTIONS 5 [sym_ppDirective]; ACTIONS 3 [sym_comment]; ACTIONS 8756 [sym_identifier];
   ACTIONS 1016 [sym_kDefault; sym_kNodefault]; ACTIONS 11641 [sym_kDispId];
   ACTIONS 8756 [sym_kGeneric; sym_kOperator; sym_kPublished]; ACTIONS 8769 [sym_kPublic];
   ACTIONS 8756 [sym_kProtected; sym_kPrivate; sym_kStrict; sym_kRequired; sym_kOptional];
   ACTIONS 1016 [sym_kStatic; sym_kVirtual; sym_kAbstract; sym_kDynamic; sym_kOverride;
   sym_kOverload; sym_kReintroduce; sym_kStdcall; sym_kCdecl; sym_kCppdecl; sym_kPascal;
   sym_kRegister; sym_kMwpascal]; ACTIONS 11645 [sym_kMessage]; ACTIONS 11647 [sym_kDeprecated];
   ACTIONS 1016 [sym_kExperimental; sym_kPlatform; sym_kUnimplemented; sym_kCvar];
   ACTIONS 11649 [sym_kExport]; ACTIONS 1016 [sym_kFar; sym_kNear; sym_kSafecall; sym_kAssembler;
   sym_kNostackframe; sym_kInterrupt; sym_kNoreturn; sym_kIocheck; sym_kLocal; sym_kHardfloat;
   sym_kSoftfloat; sym_kMs_abi_default; sym_kMs_abi_cdecl; sym_kSaveregisters;
   sym_kSysv_abi_default; sym_kSysv_abi_cdecl; sym_kVectorcall; sym_kVarargs; sym_kWinapi];
   ACTIONS 11651 [sym_kAlias]; ACTIONS 8756 [sym_kCase; sym_kClass; sym_kConst; sym_kConstructor;
   sym_kDestructor; sym_kEnd; sym_kFunction]; ACTIONS 1016 [sym_kInline];
   ACTIONS 8756 [sym_kProcedure; sym_kProperty; sym_kResourcestring; sym_kThreadvar; sym_kType;
   sym_kVar]].

(** State 1970. *)
Definition ts_parse_table_1970 : parse_row :=
  [STATE 2431 [sym__procAttribute]; STATE 15210 [sym_procAttribute];
   STATE 1972 [aux_sym_declProcFwd_repeat1]; ACTIONS 13159 [anon_sym_LBRACK];
   ACTIONS 8448 [aux_sym_ppUsesBlock_token1]; ACTIONS 3 [sym__space];
   ACTIONS 5 [sym_ppDirective]; ACTIONS 3 [sym_comment]; ACTIONS 8448 [sym_identifier];
   ACTIONS 1016 [sym_kDefault; sym_kNodefault]; ACTIONS 11641 [sym_kDispId];
   ACTIONS 8448 [sym_kGeneric; sym_kOperator]; ACTIONS 11643 [sym_kPublic];
   ACTIONS 1016 [sym_kStatic; sym_kVirtual; sym_kAbstract; sym_kDynamic; sym_kOverride;
   sym_kOverload; sym_kReintroduce; sym_kStdcall; sym_kCdecl; sym_kCppdecl; sym_kPascal;
   sym_kRegister; sym_kMwpascal]; ACTIONS 11645 [sym_kMessage]; ACTIONS 11647 [sym_kDeprecated];
   ACTIONS 1016 [sym_kExperimental; sym_kPlatform; sym_kUnimplemented; sym_kCvar];
   ACTIONS 11649 [sym_kExport]; ACTIONS 1016 [sym_kFar; sym_kNear; sym_kSafecall; sym_kAssembler;
   sym_kNostackframe; sym_kInterrupt; sym_kNoreturn; sym_kIocheck; sym_kLocal; sym_kHardfloat;
   sym_kSoftfloat; sym_kMs_abi_default; sym_kMs_abi_cdecl; sym_kSaveregisters;
   sym_kSysv_abi_default; sym_kSysv_abi_cdecl; sym_kVectorcall; sym_kVarargs; sym_kWinapi];
   ACTIONS 11651 [sym_kAlias]; ACTIONS 8448 [sym_kBegin; sym_kClass; sym_kConst;
   sym_kConstructor; sym_kDestructor; sym_kEnd; sym_kExports; sym_kFinalization; sym_kFunction;
   sym_kImplementation; sym_kInitialization]; ACTIONS 1016 [sym_kInline];
   ACTIONS 8448 [sym_kInterface; sym_kLabel; sym_kProcedure; sym_kResourcestring; sym_kThreadvar;
   sym_kType; sym_kUses; sym_kVar]].

(** State 1971. *)
Definition ts_parse_table_1971 : parse_row :=
  [STATE 2418 [sym__procAttribute]; STATE 14260 [sym_procAttribute];
   STATE 1971 [aux_sym_declProcFwd_repeat1]; ACTIONS 13162 [anon_sym_LBRACK];
   ACTIONS 8588 [aux_sym_ppUsesBlock_token1]; ACTIONS 3 [sym__space];
   ACTIONS 5 [sym_ppDirective]; ACTIONS 3 [sym_comment]; ACTIONS 8588 [sym_identifier];
   ACTIONS 8595 [sym_kDefault; sym_kNodefault]; ACTIONS 8598 [sym_kDispId];
   ACTIONS 8588 [sym_kGeneric; sym_kOperator; sym_kPublished]; ACTIONS 8601 [sym_kPublic];
   ACTIONS 8588 [sym_kProtected; sym_kPrivate; sym_kStrict; sym_kRequired; sym_kOptional];
   ACTIONS 8595 [sym_kStatic; sym_kVirtual; sym_kAbstract; sym_kDynamic; sym_kOverride;
   sym_kOverload; sym_kReintroduce; sym_kStdcall; sym_kCdecl; sym_kCppdecl; sym_kPascal;
   sym_kRegister; sym_kMwpascal]; ACTIONS 8604 [sym_kMessage]; ACTIONS 8607 [sym_kDeprecated];
   ACTIONS 8595 [sym_kExperimental; sym_kPlatform; sym_kUnimplemented; sym_kCvar];
   ACTIONS 8610 [sym_kExport]; ACTIONS 8595 [sym_kFar; sym_kNear; sym_kSafecall; sym_kAssembler;
   sym_kNostackframe; sym_kInterrupt; sym_kNoreturn; sym_kIocheck; sym_kLocal; sym_kHardfloat;
   sym_kSoftfloat; sym_kMs_abi_default; sym_kMs_abi_cdecl; sym_kSaveregisters;
   sym_kSysv_abi_default; sym_kSysv_abi_cdecl; sym_kVectorcall; sym_kVarargs; sym_kWinapi];
   ACTIONS 8613 [sym_kAlias]; ACTIONS 8588 [sym_kCase; sym_kClass; sym_kConst; sym_kConstructor;
   sym_kDestructor; sym_kEnd; sym_kFunction]; ACTIONS 8595 [sym_kInline];
   ACTIONS 8588 [sym_kProcedure; sym_kProperty; sym_kResourcestring; sym_kThreadvar; sym_kType;
   sym_kVar]].

(** State 1972. *)
Definition ts_parse_table_1972 : parse_row :=
  [STATE 2431 [sym__procAttribute]; STATE 15210 [sym_procAttribute];
   STATE 1974 [aux_sym_declProcFwd_repeat1]; ACTIONS 13165 [anon_sym_LBRACK];
   ACTIONS 8842 [aux_sym_ppUsesBlock_token1]; ACTIONS 3 [sym__space];
   ACTIONS 5 [sym_ppDirective]; ACTIONS 3 [sym_comment]; ACTIONS 8842 [sym_identifier];
   ACTIONS 1016 [sym_kDefault; sym_kNodefault]; ACTIONS 11641 [sym_kDispId];
   ACTIONS 8842 [sym_kGeneric; sym_kOperator]; ACTIONS 11643 [sym_kPublic];
   ACTIONS 1016 [sym_kStatic; sym_kVirtual; sym_kAbstract; sym_kDynamic; sym_kOverride;
   sym_kOverload; sym_kReintroduce; sym_kStdcall; sym_kCdecl; sym_kCppdecl; sym_kPascal;
   sym_kRegister; sym_kMwpascal]; ACTIONS 11645 [sym_kMessage]; ACTIONS 11647 [sym_kDeprecated];
   ACTIONS 1016 [sym_kExperimental; sym_kPlatform; sym_kUnimplemented; sym_kCvar];
   ACTIONS 11649 [sym_kExport]; ACTIONS 1016 [sym_kFar; sym_kNear; sym_kSafecall; sym_kAssembler;
   sym_kNostackframe; sym_kInterrupt; sym_kNoreturn; sym_kIocheck; sym_kLocal; sym_kHardfloat;
   sym_kSoftfloat; sym_kMs_abi_default; sym_kMs_abi_cdecl; sym_kSaveregisters;
   sym_kSysv_abi_default; sym_kSysv_abi_cdecl; sym_kVectorcall; sym_kVarargs; sym_kWinapi];
   ACTIONS 11651 [sym_kAlias]; ACTIONS 8842 [sym_kBegin; sym_kClass; sym_kConst;
   sym_kConstructor; sym_kDestructor; sym_kEnd; sym_kExports; sym_kFinalization; sym_kFunction;
   sym_kImplementation; sym_kInitialization]; ACTIONS 1016 [sym_kInline];
   ACTIONS 8842 [sym_kInterface; sym_kLabel; sym_kProcedure; sym_kResourcestring; sym_kThreadvar;
   sym_kType; sym_kUses; sym_kVar]].

(** State 1973. *)
Definition ts_parse_table_1973 : parse_row :=
  [STATE 2431 [sym__procAttribute]; STATE 15210 [sym_procAttribute];
   STATE 1931 [aux_sym_declProcFwd_repeat1]; ACTIONS 13168 [anon_sym_LBRACK];
   ACTIONS 8870 [aux_sym_ppUsesBlock_token1]; ACTIONS 3 [sym__space];
   ACTIONS 5 [sym_ppDirective]; ACTIONS 3 [sym_comment]; ACTIONS 8870 [sym_identifier];
   ACTIONS 1016 [sym_kDefault; sym_kNodefault]; ACTIONS 11641 [sym_kDispId];
   ACTIONS 8870 [sym_kGeneric; sym_kOperator]; ACTIONS 11643 [sym_kPublic];
   ACTIONS 1016 [sym_kStatic; sym_kVirtual; sym_kAbstract; sym_kDynamic; sym_kOverride;
   sym_kOverload; sym_kReintroduce; sym_kStdcall; sym_kCdecl; sym_kCppdecl; sym_kPascal;
   sym_kRegister; sym_kMwpascal]; ACTIONS 11645 [sym_kMessage]; ACTIONS 11647 [sym_kDeprecated];
   ACTIONS 1016 [sym_kExperimental; sym_kPlatform; sym_kUnimplemented; sym_kCvar];
   ACTIONS 11649 [sym_kExport]; ACTIONS 1016 [sym_kFar; sym_kNear; sym_kSafecall; sym_kAssembler;
   sym_kNostackframe; sym_kInterrupt; sym_kNoreturn; sym_kIocheck; sym_kLocal; sym_kHardfloat;
   sym_kSoftfloat; sym_kMs_abi_default; sym_kMs_abi_cdecl; sym_kSaveregisters;
   sym_kSysv_abi_default; sym_kSysv_abi_cdecl; sym_kVectorcall; sym_kVarargs; sym_kWinapi];
   ACTIONS 11651 [sym_kAlias]; ACTIONS 8870 [sym_kBegin; sym_kClass; sym_kConst;
   sym_kConstructor; sym_kDestructor; sym_kEnd; sym_kExports; sym_kFinalization; sym_kFunction;
   sym_kImplementation; sym_kInitialization]; ACTIONS 1016 [sym_kInline];
   ACTIONS 8870 [sym_kInterface; sym_kLabel; sym_kProcedure; sym_kResourcestring; sym_kThreadvar;
   sym_kType; sym_kUses; sym_kVar]].

(** State 1974. *)
Definition ts_parse_table_1974 : parse_row :=
  [STATE 2431 [sym__procAttribute]; STATE 15210 [sym_procAttribute];
   STATE 1974 [aux_sym_declProcFwd_repeat1]; ACTIONS 13171 [anon_sym_LBRACK];
   ACTIONS 8588 [aux_sym_ppUsesBlock_token1]; ACTIONS 3 [sym__space];
   ACTIONS 5 [sym_ppDirective]; ACTIONS 3 [sym_comment]; ACTIONS 8588 [sym_identifier];
   ACTIONS 8595 [sym_kDefault; sym_kNodefault]; ACTIONS 8598 [sym_kDispId];
   ACTIONS 8588 [sym_kGeneric; sym_kOperator]; ACTIONS 8601 [sym_kPublic];
   ACTIONS 8595 [sym_kStatic; sym_kVirtual; sym_kAbstract; sym_kDynamic; sym_kOverride;
   sym_kOverload; sym_kReintroduce; sym_kStdcall; sym_kCdecl; sym_kCppdecl; sym_kPascal;
   sym_kRegister; sym_kMwpascal]; ACTIONS 8604 [sym_kMessage]; ACTIONS 8607 [sym_kDeprecated];
   ACTIONS 8595 [sym_kExperimental; sym_kPlatform; sym_kUnimplemented; sym_kCvar];
   ACTIONS 8610 [sym_kExport]; ACTIONS 8595 [sym_kFar; sym_kNear; sym_kSafecall; sym_kAssembler;
   sym_kNostackframe; sym_kInterrupt; sym_kNoreturn; sym_kIocheck; sym_kLocal; sym_kHardfloat;
   sym_kSoftfloat; sym_kMs_abi_default; sym_kMs_abi_cdecl; sym_kSaveregisters;
   sym_kSysv_abi_default; sym_kSysv_abi_cdecl; sym_kVectorcall; sym_kVarargs; sym_kWinapi];
   ACTIONS 8613 [sym_kAlias]; ACTIONS 8588 [sym_kBegin; sym_kClass; sym_kConst; sym_kConstructor;
   sym_kDestructor; sym_kEnd; sym_kExports; sym_kFinalization; sym_kFunction;
   sym_kImplementation; sym_kInitialization]; ACTIONS 8595 [sym_kInline];
   ACTIONS 8588 [sym_kInterface; sym_kLabel; sym_kProcedure; sym_kResourcestring; sym_kThreadvar;
   sym_kType; sym_kUses; sym_kVar]].

(** State 1975. *)
Definition ts_parse_table_1975 : parse_row :=
  [STATE 2418 [sym__procAttribute]; STATE 14260 [sym_procAttribute];
   STATE 1954 [aux_sym_declProcFwd_repeat1]; ACTIONS 13174 [anon_sym_LBRACK];
   ACTIONS 8926 [aux_sym_ppUsesBlock_token1]; ACTIONS 3 [sym__space];
   ACTIONS 5 [sym_ppDirective]; ACTIONS 3 [sym_comment]; ACTIONS 8926 [sym_identifier];
   ACTIONS 1016 [sym_kDefault; sym_kNodefault]; ACTIONS 11641 [sym_kDispId];
   ACTIONS 8926 [sym_kGeneric; sym_kOperator; sym_kPublished]; ACTIONS 8939 [sym_kPublic];
   ACTIONS 8926 [sym_kProtected; sym_kPrivate; sym_kStrict; sym_kRequired; sym_kOptional];
   ACTIONS 1016 [sym_kStatic; sym_kVirtual; sym_kAbstract; sym_kDynamic; sym_kOverride;
   sym_kOverload; sym_kReintroduce; sym_kStdcall; sym_kCdecl; sym_kCppdecl; sym_kPascal;
   sym_kRegister; sym_kMwpascal]; ACTIONS 11645 [sym_kMessage]; ACTIONS 11647 [sym_kDeprecated];
   ACTIONS 1016 [sym_kExperimental; sym_kPlatform; sym_kUnimplemented; sym_kCvar];
   ACTIONS 11649 [sym_kExport]; ACTIONS 1016 [sym_kFar; sym_kNear; sym_kSafecall; sym_kAssembler;
   sym_kNostackframe; sym_kInterrupt; sym_kNoreturn; sym_kIocheck; sym_kLocal; sym_kHardfloat;
   sym_kSoftfloat; sym_kMs_abi_default; sym_kMs_abi_cdecl; sym_kSaveregisters;
   sym_kSysv_abi_default; sym_kSysv_abi_cdecl; sym_kVectorcall; sym_kVarargs; sym_kWinapi];
   ACTIONS 11651 [sym_kAlias]; ACTIONS 8926 [sym_kCase; sym_kClass; sym_kConst; sym_kConstructor;
   sym_kDestructor; sym_kEnd; sym_kFunction]; ACTIONS 1016 [sym_kInline];
   ACTIONS 8926 [sym_kProcedure; sym_kProperty; sym_kResourcestring; sym_kThreadvar; sym_kType;
   sym_kVar]].

(** State 1976. *)
Definition ts_parse_table_1976 : parse_row :=
  [STATE 2856 [sym__ppIf]; STATE 2638 [sym__procAttributeNoExt];
   STATE 2639 [sym__procAttributesPp]; STATE 15800 [sym_procAttribute];
   STATE 2114 [aux_sym__declProc_repeat1]; ACTIONS 13177 [anon_sym_LBRACK];
   ACTIONS 2280 [aux_sym_ppUsesBlock_token1]; ACTIONS 3 [sym__space];
   ACTIONS 5 [sym_ppDirective]; ACTIONS 3 [sym_comment]; ACTIONS 1016 [sym_kDefault;
   sym_kNodefault]; ACTIONS 11641 [sym_kDispId]; ACTIONS 2273 [sym_kGeneric; sym_kOperator];
   ACTIONS 11643 [sym_kPublic]; ACTIONS 2273 [sym_kForward]; ACTIONS 1016 [sym_kStatic;
   sym_kVirtual; sym_kAbstract; sym_kDynamic; sym_kOverride; sym_kOverload; sym_kReintroduce;
   sym_kStdcall; sym_kCdecl; sym_kCppdecl; sym_kPascal; sym_kRegister; sym_kMwpascal];
   ACTIONS 2273 [sym_kExternal]; ACTIONS 11645 [sym_kMessage]; ACTIONS 11647 [sym_kDeprecated];
   ACTIONS 1016 [sym_kExperimental; sym_kPlatform; sym_kUnimplemented; sym_kCvar];
   ACTIONS 11649 [sym_kExport]; ACTIONS 1016 [sym_kFar; sym_kNear; sym_kSafecall; sym_kAssembler;
   sym_kNostackframe; sym_kInterrupt; sym_kNoreturn; sym_kIocheck; sym_kLocal; sym_kHardfloat;
   sym_kSoftfloat; sym_kMs_abi_default; sym_kMs_abi_cdecl; sym_kSaveregisters;
   sym_kSysv_abi_default; sym_kSysv_abi_cdecl; sym_kVectorcall; sym_kVarargs; sym_kWinapi];
   ACTIONS 11651 [sym_kAlias]; ACTIONS 2273 [sym_kAsm; sym_kBegin; sym_kClass; sym_kConst;
   sym_kConstructor; sym_kDestructor; sym_kExports; sym_kFunction]; ACTIONS 1016 [sym_kInline];
   ACTIONS 2273 [sym_kLabel; sym_kProcedure; sym_kResourcestring; sym_kThreadvar; sym_kType;
   sym_kUses; sym_kVar]].

(** State 1977. *)
Definition ts_parse_table_1977 : parse_row :=
  [STATE 2501 [sym__procAttribute]; STATE 15613 [sym_procAttribute];
   STATE 2040 [aux_sym_declProcFwd_repeat1]; ACTIONS 13180 [anon_sym_LBRACK];
   ACTIONS 7854 [aux_sym_ppUsesBlock_token1]; ACTIONS 3 [sym__space];
   ACTIONS 5 [sym_ppDirective]; ACTIONS 3 [sym_comment]; ACTIONS 1016 [sym_kDefault;
   sym_kNodefault]; ACTIONS 11641 [sym_kDispId]; ACTIONS 7854 [sym_kGeneric; sym_kOperator];
   ACTIONS 11643 [sym_kPublic]; ACTIONS 1016 [sym_kStatic; sym_kVirtual; sym_kAbstract;
   sym_kDynamic; sym_kOverride; sym_kOverload; sym_kReintroduce; sym_kStdcall; sym_kCdecl;
   sym_kCppdecl; sym_kPascal; sym_kRegister; sym_kMwpascal]; ACTIONS 11645 [sym_kMessage];
   ACTIONS 11647 [sym_kDeprecated]; ACTIONS 1016 [sym_kExperimental; sym_kPlatform;
   sym_kUnimplemented; sym_kCvar]; ACTIONS 11649 [sym_kExport]; ACTIONS 1016 [sym_kFar;
   sym_kNear; sym_kSafecall; sym_kAssembler; sym_kNostackframe; sym_kInterrupt; sym_kNoreturn;
   sym_kIocheck; sym_kLocal; sym_kHardfloat; sym_kSoftfloat; sym_kMs_abi_default;
   sym_kMs_abi_cdecl; sym_kSaveregisters; sym_kSysv_abi_default; sym_kSysv_abi_cdecl;
   sym_kVectorcall; sym_kVarargs; sym_kWinapi]; ACTIONS 11651 [sym_kAlias];
   ACTIONS 7854 [sym_kClass; sym_kConst; sym_kConstructor; sym_kDestructor; sym_kEnd;
   sym_kExports; sym_kFinalization; sym_kFunction; sym_kImplementation; sym_kInitialization];
   ACTIONS 1016 [sym_kInline]; ACTIONS 7854 [sym_kInterface; sym_kLabel; sym_kProcedure;
   sym_kProperty; sym_kResourcestring; sym_kThreadvar; sym_kType; sym_kUses; sym_kVar]].

(** State 1978. *)
Definition ts_parse_table_1978 : parse_row :=
  [STATE 2501 [sym__procAttribute]; STATE 15613 [sym_procAttribute];
   STATE 2040 [aux_sym_declProcFwd_repeat1]; ACTIONS 13183 [anon_sym_LBRACK];
   ACTIONS 7882 [aux_sym_ppUsesBlock_token1]; ACTIONS 3 [sym__space];
   ACTIONS 5 [sym_ppDirective]; ACTIONS 3 [sym_comment]; ACTIONS 1016 [sym_kDefault;
   sym_kNodefault]; ACTIONS 11641 [sym_kDispId]; ACTIONS 7882 [sym_kGeneric; sym_kOperator];
   ACTIONS 11643 [sym_kPublic]; ACTIONS 1016 [sym_kStatic; sym_kVirtual; sym_kAbstract;
   sym_kDynamic; sym_kOverride; sym_kOverload; sym_kReintroduce; sym_kStdcall; sym_kCdecl;
   sym_kCppdecl; sym_kPascal; sym_kRegister; sym_kMwpascal]; ACTIONS 11645 [sym_kMessage];
   ACTIONS 11647 [sym_kDeprecated]; ACTIONS 1016 [sym_kExperimental; sym_kPlatform;
   sym_kUnimplemented; sym_kCvar]; ACTIONS 11649 [sym_kExport]; ACTIONS 1016 [sym_kFar;
   sym_kNear; sym_kSafecall; sym_kAssembler; sym_kNostackframe; sym_kInterrupt; sym_kNoreturn;
   sym_kIocheck; sym_kLocal; sym_kHardfloat; sym_kSoftfloat; sym_kMs_abi_default;
   sym_kMs_abi_cdecl; sym_kSaveregisters; sym_kSysv_abi_default; sym_kSysv_abi_cdecl;
   sym_kVectorcall; sym_kVarargs; sym_kWinapi]; ACTIONS 11651 [sym_kAlias];
   ACTIONS 7882 [sym_kClass; sym_kConst; sym_kConstructor; sym_kDestructor; sym_kEnd;
   sym_kExports; sym_kFinalization; sym_kFunction; sym_kImplementation; sym_kInitialization];
   ACTIONS 1016 [sym_kInline]; ACTIONS 7882 [sym_kInterface; sym_kLabel; sym_kProcedure;
   sym_kProperty; sym_kResourcestring; sym_kThreadvar; sym_kType; sym_kUses; sym_kVar]].

(** State 1979. *)
Definition ts_parse_table_1979 : parse_row :=
  [STATE 2501 [sym__procAttribute]; STATE 15613 [sym_procAttribute];
   STATE 1980 [aux_sym_declProcFwd_repeat1]; ACTIONS 13186 [anon_sym_LBRACK];
   ACTIONS 7910 [aux_sym_ppUsesBlock_token1]; ACTIONS 3 [sym__space];
   ACTIONS 5 [sym_ppDirective]; ACTIONS 3 [sym_comment]; ACTIONS 1016 [sym_kDefault;
   sym_kNodefault]; ACTIONS 11641 [sym_kDispId]; ACTIONS 7910 [sym_kGeneric; sym_kOperator];
   ACTIONS 11643 [sym_kPublic]; ACTIONS 1016 [sym_kStatic; sym_kVirtual; sym_kAbstract;
   sym_kDynamic; sym_kOverride; sym_kOverload; sym_kReintroduce; sym_kStdcall; sym_kCdecl;
   sym_kCppdecl; sym_kPascal; sym_kRegister; sym_kMwpascal]; ACTIONS 11645 [sym_kMessage];
   ACTIONS 11647 [sym_kDeprecated]; ACTIONS 1016 [sym_kExperimental; sym_kPlatform;
   sym_kUnimplemented; sym_kCvar]; ACTIONS 11649 [sym_kExport]; ACTIONS 1016 [sym_kFar;
   sym_kNear; sym_kSafecall; sym_kAssembler; sym_kNostackframe; sym_kInterrupt; sym_kNoreturn;
   sym_kIocheck; sym_kLocal; sym_kHardfloat; sym_kSoftfloat; sym_kMs_abi_default;
   sym_kMs_abi_cdecl; sym_kSaveregisters; sym_kSysv_abi_default; sym_kSysv_abi_cdecl;
   sym_kVectorcall; sym_kVarargs; sym_kWinapi]; ACTIONS 11651 [sym_kAlias];
   ACTIONS 7910 [sym_kClass; sym_kConst; sym_kConstructor; sym_kDestructor; sym_kEnd;
   sym_kExports; sym_kFinalization; sym_kFunction; sym_kImplementation; sym_kInitialization];
   ACTIONS 1016 [sym_kInline]; ACTIONS 7910 [sym_kInterface; sym_kLabel; sym_kProcedure;
   sym_kProperty; sym_kResourcestring; sym_kThreadvar; sym_kType; sym_kUses; sym_kVar]].

(** State 1980. *)
Definition ts_parse_table_1980 : parse_row :=
  [STATE 2501 [sym__procAttribute]; STATE 15613 [sym_procAttribute];
   STATE 2040 [aux_sym_declProcFwd_repeat1]; ACTIONS 13189 [anon_sym_LBRACK];
   ACTIONS 7938 [aux_sym_ppUsesBlock_token1]; ACTIONS 3 [sym__space];
   ACTIONS 5 [sym_ppDirective]; ACTIONS 3 [sym_comment]; ACTIONS 1016 [sym_kDefault;
   sym_kNodefault]; ACTIONS 11641 [sym_kDispId]; ACTIONS 7938 [sym_kGeneric; sym_kOperator];
   ACTIONS 11643 [sym_kPublic]; ACTIONS 1016 [sym_kStatic; sym_kVirtual; sym_kAbstract;
   sym_kDynamic; sym_kOverride; sym_kOverload; sym_kReintroduce; sym_kStdcall; sym_kCdecl;
   sym_kCppdecl; sym_kPascal; sym_kRegister; sym_kMwpascal]; ACTIONS 11645 [sym_kMessage];
   ACTIONS 11647 [sym_kDeprecated]; ACTIONS 1016 [sym_kExperimental; sym_kPlatform;
   sym_kUnimplemented; sym_kCvar]; ACTIONS 11649 [sym_kExport]; ACTIONS 1016 [sym_kFar;
   sym_kNear; sym_kSafecall; sym_kAssembler; sym_kNostackframe; sym_kInterrupt; sym_kNoreturn;
   sym_kIocheck; sym_kLocal; sym_kHardfloat; sym_kSoftfloat; sym_kMs_abi_default;
   sym_kMs_abi_cdecl; sym_kSaveregisters; sym_kSysv_abi_default; sym_kSysv_abi_cdecl;
   sym_kVectorcall; sym_kVarargs; sym_kWinapi]; ACTIONS 11651 [sym_kAlias];
   ACTIONS 7938 [sym_kClass; sym_kConst; sym_kConstructor; sym_kDestructor; sym_kEnd;
   sym_kExports; sym_kFinalization; sym_kFunction; sym_kImplementation; sym_kInitialization];
   ACTIONS 1016 [sym_kInline]; ACTIONS 7938 [sym_kInterface; sym_kLabel; sym_kProcedure;
   sym_kProperty; sym_kResourcestring; sym_kThreadvar; sym_kType; sym_kUses; sym_kVar]].

(** State 1981. *)
Definition ts_parse_table_1981 : parse_row :=
  [STATE 28 [sym__ppIf]; STATE 1984 [sym_ppBlock; sym_declVar]; STATE 5440 [sym_rttiAttributes];
   STATE 1984 [aux_sym_declVars_repeat1]; STATE 5441 [aux_sym_declVar_repeat1];
   STATE 4094 [aux_sym_rttiAttributes_repeat2]; ACTIONS 3368 [anon_sym_LBRACK];
   ACTIONS 3373 [aux_sym_ppUsesBlock_token1]; ACTIONS 3 [sym__space];
   ACTIONS 5 [sym_ppDirective]; ACTIONS 3 [sym_comment]; ACTIONS 13192 [sym_identifier];
   ACTIONS 13194 [sym_kDefault; sym_kNodefault; sym_kDispId]; ACTIONS 3366 [sym_kGeneric];
   ACTIONS 13196 [sym_kOperator]; ACTIONS 13194 [sym_kPublic; sym_kStatic; sym_kVirtual;
   sym_kAbstract; sym_kDynamic; sym_kOverride; sym_kOverload; sym_kReintroduce; sym_kStdcall;
   sym_kCdecl; sym_kCppdecl; sym_kPascal; sym_kRegister; sym_kMwpascal; sym_kMessage;
   sym_kDeprecated; sym_kExperimental; sym_kPlatform; sym_kUnimplemented; sym_kCvar; sym_kExport;
   sym_kFar; sym_kNear; sym_kSafecall; sym_kAssembler; sym_kNostackframe; sym_kInterrupt;
   sym_kNoreturn; sym_kIocheck; sym_kLocal; sym_kHardfloat; sym_kSoftfloat; sym_kMs_abi_default;
   sym_kMs_abi_cdecl; sym_kSaveregisters; sym_kSysv_abi_default; sym_kSysv_abi_cdecl;
   sym_kVectorcall; sym_kVarargs; sym_kWinapi; sym_kAlias]; ACTIONS 3366 [sym_kBegin; sym_kClass;
   sym_kConst; sym_kConstructor; sym_kDestructor; sym_kEnd; sym_kExports; sym_kFunction;
   sym_kLabel; sym_kProcedure; sym_kResourcestring; sym_kThreadvar; sym_kType; sym_kUses;
   sym_kVar]].

(** State 1982. *)
Definition ts_parse_table_1982 : parse_row :=
  [STATE 2856 [sym__ppIf]; STATE 2638 [sym__procAttributeNoExt];
   STATE 2639 [sym__procAttributesPp]; STATE 15800 [sym_procAttribute];
   STATE 2114 [aux_sym__declProc_repeat1]; ACTIONS 13199 [anon_sym_LBRACK];
   ACTIONS 1056 [aux_sym_ppUsesBlock_token1]; ACTIONS 3 [sym__space];
   ACTIONS 5 [sym_ppDirective]; ACTIONS 3 [sym_comment]; ACTIONS 1016 [sym_kDefault;
   sym_kNodefault]; ACTIONS 11641 [sym_kDispId]; ACTIONS 1049 [sym_kGeneric; sym_kOperator];
   ACTIONS 11643 [sym_kPublic]; ACTIONS 1049 [sym_kForward]; ACTIONS 1016 [sym_kStatic;
   sym_kVirtual; sym_kAbstract; sym_kDynamic; sym_kOverride; sym_kOverload; sym_kReintroduce;
   sym_kStdcall; sym_kCdecl; sym_kCppdecl; sym_kPascal; sym_kRegister; sym_kMwpascal];
   ACTIONS 1049 [sym_kExternal]; ACTIONS 11645 [sym_kMessage]; ACTIONS 11647 [sym_kDeprecated];
   ACTIONS 1016 [sym_kExperimental; sym_kPlatform; sym_kUnimplemented; sym_kCvar];
   ACTIONS 11649 [sym_kExport]; ACTIONS 1016 [sym_kFar; sym_kNear; sym_kSafecall; sym_kAssembler;
   sym_kNostackframe; sym_kInterrupt; sym_kNoreturn; sym_kIocheck; sym_kLocal; sym_kHardfloat;
   sym_kSoftfloat; sym_kMs_abi_default; sym_kMs_abi_cdecl; sym_kSaveregisters;
   sym_kSysv_abi_default; sym_kSysv_abi_cdecl; sym_kVectorcall; sym_kVarargs; sym_kWinapi];
   ACTIONS 11651 [sym_kAlias]; ACTIONS 1049 [sym_kAsm; sym_kBegin; sym_kClass; sym_kConst;
   sym_kConstructor; sym_kDestructor; sym_kExports; sym_kFunction]; ACTIONS 1016 [sym_kInline];
   ACTIONS 1049 [sym_kLabel; sym_kProcedure; sym_kResourcestring; sym_kThreadvar; sym_kType;
   sym_kUses; sym_kVar]].

(** State 1983. *)
Definition ts_parse_table_1983 : parse_row :=
  [STATE 28 [sym__ppIf]; STATE 1987 [sym_ppBlock; sym_declVar]; STATE 5440 [sym_rttiAttributes];
   STATE 1987 [aux_sym_declVars_repeat1]; STATE 5441 [aux_sym_declVar_repeat1];
   STATE 4094 [aux_sym_rttiAttributes_repeat2]; ACTIONS 3633 [anon_sym_LBRACK];
   ACTIONS 3638 [aux_sym_ppUsesBlock_token1]; ACTIONS 3 [sym__space];
   ACTIONS 5 [sym_ppDirective]; ACTIONS 3 [sym_comment]; ACTIONS 13192 [sym_identifier];
   ACTIONS 13194 [sym_kDefault; sym_kNodefault; sym_kDispId]; ACTIONS 3631 [sym_kGeneric];
   ACTIONS 13202 [sym_kOperator]; ACTIONS 13194 [sym_kPublic; sym_kStatic; sym_kVirtual;
   sym_kAbstract; sym_kDynamic; sym_kOverride; sym_kOverload; sym_kReintroduce; sym_kStdcall;
   sym_kCdecl; sym_kCppdecl; sym_kPascal; sym_kRegister; sym_kMwpascal; sym_kMessage;
   sym_kDeprecated; sym_kExperimental; sym_kPlatform; sym_kUnimplemented; sym_kCvar; sym_kExport;
   sym_kFar; sym_kNear; sym_kSafecall; sym_kAssembler; sym_kNostackframe; sym_kInterrupt;
   sym_kNoreturn; sym_kIocheck; sym_kLocal; sym_kHardfloat; sym_kSoftfloat; sym_kMs_abi_default;
   sym_kMs_abi_cdecl; sym_kSaveregisters; sym_kSysv_abi_default; sym_kSysv_abi_cdecl;
   sym_kVectorcall; sym_kVarargs; sym_kWinapi; sym_kAlias]; ACTIONS 3631 [sym_kBegin; sym_kClass;
   sym_kConst; sym_kConstructor; sym_kDestructor; sym_kEnd; sym_kExports; sym_kFunction;
   sym_kLabel; sym_kProcedure; sym_kResourcestring; sym_kThreadvar; sym_kType; sym_kUses;
   sym_kVar]].

(** State 1984. *)
Definition ts_parse_table_1984 : parse_row :=
  [STATE 28 [sym__ppIf]; STATE 1989 [sym_ppBlock; sym_declVar]; STATE 5440 [sym_rttiAttributes];
   STATE 1989 [aux_sym_declVars_repeat1]; STATE 5441 [aux_sym_declVar_repeat1];
   STATE 4094 [aux_sym_rttiAttributes_repeat2]; ACTIONS 3633 [anon_sym_LBRACK];
   ACTIONS 3638 [aux_sym_ppUsesBlock_token1]; ACTIONS 3 [sym__space];
   ACTIONS 5 [sym_ppDirective]; ACTIONS 3 [sym_comment]; ACTIONS 13192 [sym_identifier];
   ACTIONS 13194 [sym_kDefault; sym_kNodefault; sym_kDispId]; ACTIONS 3631 [sym_kGeneric];
   ACTIONS 13202 [sym_kOperator]; ACTIONS 13194 [sym_kPublic; sym_kStatic; sym_kVirtual;
   sym_kAbstract; sym_kDynamic; sym_kOverride; sym_kOverload; sym_kReintroduce; sym_kStdcall;
   sym_kCdecl; sym_kCppdecl; sym_kPascal; sym_kRegister; sym_kMwpascal; sym_kMessage;
   sym_kDeprecated; sym_kExperimental; sym_kPlatform; sym_kUnimplemented; sym_kCvar; sym_kExport;
   sym_kFar; sym_kNear; sym_kSafecall; sym_kAssembler; sym_kNostackframe; sym_kInterrupt;
   sym_kNoreturn; sym_kIocheck; sym_kLocal; sym_kHardfloat; sym_kSoftfloat; sym_kMs_abi_default;
   sym_kMs_abi_cdecl; sym_kSaveregisters; sym_kSysv_abi_default; sym_kSysv_abi_cdecl;
   sym_kVectorcall; sym_kVarargs; sym_kWinapi; sym_kAlias]; ACTIONS 3631 [sym_kBegin; sym_kClass;
   sym_kConst; sym_kConstructor; sym_kDestructor; sym_kEnd; sym_kExports; sym_kFunction;
   sym_kLabel; sym_kProcedure; sym_kResourcestring; sym_kThreadvar; sym_kType; sym_kUses;
   sym_kVar]].

(** State 1985. *)
Definition ts_parse_table_1985 : parse_row :=
  [STATE 2856 [sym__ppIf]; STATE 2638 [sym__procAttributeNoExt];
   STATE 2639 [sym__procAttributesPp]; STATE 15800 [sym_procAttribute];
   STATE 2008 [aux_sym__declProc_repeat1]; ACTIONS 13205 [anon_sym_LBRACK];
   ACTIONS 1087 [aux_sym_ppUsesBlock_token1]; ACTIONS 3 [sym__space];
   ACTIONS 5 [sym_ppDirective]; ACTIONS 3 [sym_comment]; ACTIONS 1016 [sym_kDefault;
   sym_kNodefault]; ACTIONS 11641 [sym_kDispId]; ACTIONS 1080 [sym_kGeneric; sym_kOperator];
   ACTIONS 11643 [sym_kPublic]; ACTIONS 1080 [sym_kForward]; ACTIONS 1016 [sym_kStatic;
   sym_kVirtual; sym_kAbstract; sym_kDynamic; sym_kOverride; sym_kOverload; sym_kReintroduce;
   sym_kStdcall; sym_kCdecl; sym_kCppdecl; sym_kPascal; sym_kRegister; sym_kMwpascal];
   ACTIONS 1080 [sym_kExternal]; ACTIONS 11645 [sym_kMessage]; ACTIONS 11647 [sym_kDeprecated];
   ACTIONS 1016 [sym_kExperimental; sym_kPlatform; sym_kUnimplemented; sym_kCvar];
   ACTIONS 11649 [sym_kExport]; ACTIONS 1016 [sym_kFar; sym_kNear; sym_kSafecall; sym_kAssembler;
   sym_kNostackframe; sym_kInterrupt; sym_kNoreturn; sym_kIocheck; sym_kLocal; sym_kHardfloat;
   sym_kSoftfloat; sym_kMs_abi_default; sym_kMs_abi_cdecl; sym_kSaveregisters;
   sym_kSysv_abi_default; sym_kSysv_abi_cdecl; sym_kVectorcall; sym_kVarargs; sym_kWinapi];
   ACTIONS 11651 [sym_kAlias]; ACTIONS 1080 [sym_kAsm; sym_kBegin; sym_kClass; sym_kConst;
   sym_kConstructor; sym_kDestructor; sym_kExports; sym_kFunction]; ACTIONS 1016 [sym_kInline];
   ACTIONS 1080 [sym_kLabel; sym_kProcedure; sym_kResourcestring; sym_kThreadvar; sym_kType;
   sym_kUses; sym_kVar]].

(** State 1986. *)
Definition ts_parse_table_1986 : parse_row :=
  [STATE 2856 [sym__ppIf]; STATE 2638 [sym__procAttributeNoExt];
   STATE 2639 [sym__procAttributesPp]; STATE 15800 [sym_procAttribute];
   STATE 2114 [aux_sym__declProc_repeat1]; ACTIONS 13208 [anon_sym_LBRACK];
   ACTIONS 2628 [aux_sym_ppUsesBlock_token1]; ACTIONS 3 [sym__space];
   ACTIONS 5 [sym_ppDirective]; ACTIONS 3 [sym_comment]; ACTIONS 1016 [sym_kDefault;
   sym_kNodefault]; ACTIONS 11641 [sym_kDispId]; ACTIONS 2621 [sym_kGeneric; sym_kOperator];
   ACTIONS 11643 [sym_kPublic]; ACTIONS 2621 [sym_kForward]; ACTIONS 1016 [sym_kStatic;
   sym_kVirtual; sym_kAbstract; sym_kDynamic; sym_kOverride; sym_kOverload; sym_kReintroduce;
   sym_kStdcall; sym_kCdecl; sym_kCppdecl; sym_kPascal; sym_kRegister; sym_kMwpascal];
   ACTIONS 2621 [sym_kExternal]; ACTIONS 11645 [sym_kMessage]; ACTIONS 11647 [sym_kDeprecated];
   ACTIONS 1016 [sym_kExperimental; sym_kPlatform; sym_kUnimplemented; sym_kCvar];
   ACTIONS 11649 [sym_kExport]; ACTIONS 1016 [sym_kFar; sym_kNear; sym_kSafecall; sym_kAssembler;
   sym_kNostackframe; sym_kInterrupt; sym_kNoreturn; sym_kIocheck; sym_kLocal; sym_kHardfloat;
   sym_kSoftfloat; sym_kMs_abi_default; sym_kMs_abi_cdecl; sym_kSaveregisters;
   sym_kSysv_abi_default; sym_kSysv_abi_cdecl; sym_kVectorcall; sym_kVarargs; sym_kWinapi];
   ACTIONS 11651 [sym_kAlias]; ACTIONS 2621 [sym_kAsm; sym_kBegin; sym_kClass; sym_kConst;
   sym_kConstructor; sym_kDestructor; sym_kExports; sym_kFunction]; ACTIONS 1016 [sym_kInline];
   ACTIONS 2621 [sym_kLabel; sym_kProcedure; sym_kResourcestring; sym_kThreadvar; sym_kType;
   sym_kUses; sym_kVar]].

(** State 1987. *)
Definition ts_parse_table_1987 : parse_row :=
  [STATE 28 [sym__ppIf]; STATE 1989 [sym_ppBlock; sym_declVar]; STATE 5440 [sym_rttiAttributes];
   STATE 1989 [aux_sym_declVars_repeat1]; STATE 5441 [aux_sym_declVar_repeat1];
   STATE 4094 [aux_sym_rttiAttributes_repeat2]; ACTIONS 3671 [anon_sym_LBRACK];
   ACTIONS 3676 [aux_sym_ppUsesBlock_token1]; ACTIONS 3 [sym__space];
   ACTIONS 5 [sym_ppDirective]; ACTIONS 3 [sym_comment]; ACTIONS 13192 [sym_identifier];
   ACTIONS 13194 [sym_kDefault; sym_kNodefault; sym_kDispId]; ACTIONS 3669 [sym_kGeneric];
   ACTIONS 13211 [sym_kOperator]; ACTIONS 13194 [sym_kPublic; sym_kStatic; sym_kVirtual;
   sym_kAbstract; sym_kDynamic; sym_kOverride; sym_kOverload; sym_kReintroduce; sym_kStdcall;
   sym_kCdecl; sym_kCppdecl; sym_kPascal; sym_kRegister; sym_kMwpascal; sym_kMessage;
   sym_kDeprecated; sym_kExperimental; sym_kPlatform; sym_kUnimplemented; sym_kCvar; sym_kExport;
   sym_kFar; sym_kNear; sym_kSafecall; sym_kAssembler; sym_kNostackframe; sym_kInterrupt;
   sym_kNoreturn; sym_kIocheck; sym_kLocal; sym_kHardfloat; sym_kSoftfloat; sym_kMs_abi_default;
   sym_kMs_abi_cdecl; sym_kSaveregisters; sym_kSysv_abi_default; sym_kSysv_abi_cdecl;
   sym_kVectorcall; sym_kVarargs; sym_kWinapi; sym_kAlias]; ACTIONS 3669 [sym_kBegin; sym_kClass;
   sym_kConst; sym_kConstructor; sym_kDestructor; sym_kEnd; sym_kExports; sym_kFunction;
   sym_kLabel; sym_kProcedure; sym_kResourcestring; sym_kThreadvar; sym_kType; sym_kUses;
   sym_kVar]].

(** State 1988. *)
Definition ts_parse_table_1988 : parse_row :=
  [STATE 2856 [sym__ppIf]; STATE 2638 [sym__procAttributeNoExt];
   STATE 2639 [sym__procAttributesPp]; STATE 15800 [sym_procAttribute];
   STATE 2114 [aux_sym__declProc_repeat1]; ACTIONS 13214 [anon_sym_LBRACK];
   ACTIONS 1118 [aux_sym_ppUsesBlock_token1]; ACTIONS 3 [sym__space];
   ACTIONS 5 [sym_ppDirective]; ACTIONS 3 [sym_comment]; ACTIONS 1016 [sym_kDefault;
   sym_kNodefault]; ACTIONS 11641 [sym_kDispId]; ACTIONS 1111 [sym_kGeneric; sym_kOperator];
   ACTIONS 11643 [sym_kPublic]; ACTIONS 1111 [sym_kForward]; ACTIONS 1016 [sym_kStatic;
   sym_kVirtual; sym_kAbstract; sym_kDynamic; sym_kOverride; sym_kOverload; sym_kReintroduce;
   sym_kStdcall; sym_kCdecl; sym_kCppdecl; sym_kPascal; sym_kRegister; sym_kMwpascal];
   ACTIONS 1111 [sym_kExternal]; ACTIONS 11645 [sym_kMessage]; ACTIONS 11647 [sym_kDeprecated];
   ACTIONS 1016 [sym_kExperimental; sym_kPlatform; sym_kUnimplemented; sym_kCvar];
   ACTIONS 11649 [sym_kExport]; ACTIONS 1016 [sym_kFar; sym_kNear; sym_kSafecall; sym_kAssembler;
   sym_kNostackframe; sym_kInterrupt; sym_kNoreturn; sym_kIocheck; sym_kLocal; sym_kHardfloat;
   sym_kSoftfloat; sym_kMs_abi_default; sym_kMs_abi_cdecl; sym_kSaveregisters;
   sym_kSysv_abi_default; sym_kSysv_abi_cdecl; sym_kVectorcall; sym_kVarargs; sym_kWinapi];
   ACTIONS 11651 [sym_kAlias]; ACTIONS 1111 [sym_kAsm; sym_kBegin; sym_kClass; sym_kConst;
   sym_kConstructor; sym_kDestructor; sym_kExports; sym_kFunction]; ACTIONS 1016 [sym_kInline];
   ACTIONS 1111 [sym_kLabel; sym_kProcedure; sym_kResourcestring; sym_kThreadvar; sym_kType;
   sym_kUses; sym_kVar]].

(** State 1989. *)
Definition ts_parse_table_1989 : parse_row :=
  [STATE 28 [sym__ppIf]; STATE 1989 [sym_ppBlock; sym_declVar]; STATE 5440 [sym_rttiAttributes];
   STATE 1989 [aux_sym_declVars_repeat1]; STATE 5441 [aux_sym_declVar_repeat1];
   STATE 4094 [aux_sym_rttiAttributes_repeat2]; ACTIONS 3695 [anon_sym_LBRACK];
   ACTIONS 3700 [aux_sym_ppUsesBlock_token1]; ACTIONS 3 [sym__space];
   ACTIONS 5 [sym_ppDirective]; ACTIONS 3 [sym_comment]; ACTIONS 13217 [sym_identifier];
   ACTIONS 13220 [sym_kDefault; sym_kNodefault; sym_kDispId]; ACTIONS 3693 [sym_kGeneric];
   ACTIONS 13220 [sym_kOperator; sym_kPublic; sym_kStatic; sym_kVirtual; sym_kAbstract;
   sym_kDynamic; sym_kOverride; sym_kOverload; sym_kReintroduce; sym_kStdcall; sym_kCdecl;
   sym_kCppdecl; sym_kPascal; sym_kRegister; sym_kMwpascal; sym_kMessage; sym_kDeprecated;
   sym_kExperimental; sym_kPlatform; sym_kUnimplemented; sym_kCvar; sym_kExport; sym_kFar;
   sym_kNear; sym_kSafecall; sym_kAssembler; sym_kNostackframe; sym_kInterrupt; sym_kNoreturn;
   sym_kIocheck; sym_kLocal; sym_kHardfloat; sym_kSoftfloat; sym_kMs_abi_default;
   sym_kMs_abi_cdecl; sym_kSaveregisters; sym_kSysv_abi_default; sym_kSysv_abi_cdecl;
   sym_kVectorcall; sym_kVarargs; sym_kWinapi; sym_kAlias]; ACTIONS 3693 [sym_kBegin; sym_kClass;
   sym_kConst; sym_kConstructor; sym_kDestructor; sym_kEnd; sym_kExports; sym_kFunction;
   sym_kLabel; sym_kProcedure; sym_kResourcestring; sym_kThreadvar; sym_kType; sym_kUses;
   sym_kVar]].

(** State 1990. *)
Definition ts_parse_table_1990 : parse_row :=
  [STATE 2856 [sym__ppIf]; STATE 2638 [sym__procAttributeNoExt];
   STATE 2639 [sym__procAttributesPp]; STATE 15800 [sym_procAttribute];
   STATE 2086 [aux_sym__declProc_repeat1]; ACTIONS 13223 [anon_sym_LBRACK];
   ACTIONS 2659 [aux_sym_ppUsesBlock_token1]; ACTIONS 3 [sym__space];
   ACTIONS 5 [sym_ppDirective]; ACTIONS 3 [sym_comment]; ACTIONS 1016 [sym_kDefault;
   sym_kNodefault]; ACTIONS 11641 [sym_kDispId]; ACTIONS 2652 [sym_kGeneric; sym_kOperator];
   ACTIONS 11643 [sym_kPublic]; ACTIONS 2652 [sym_kForward]; ACTIONS 1016 [sym_kStatic;
   sym_kVirtual; sym_kAbstract; sym_kDynamic; sym_kOverride; sym_kOverload; sym_kReintroduce;
   sym_kStdcall; sym_kCdecl; sym_kCppdecl; sym_kPascal; sym_kRegister; sym_kMwpascal];
   ACTIONS 2652 [sym_kExternal]; ACTIONS 11645 [sym_kMessage]; ACTIONS 11647 [sym_kDeprecated];
   ACTIONS 1016 [sym_kExperimental; sym_kPlatform; sym_kUnimplemented; sym_kCvar];
   ACTIONS 11649 [sym_kExport]; ACTIONS 1016 [sym_kFar; sym_kNear; sym_kSafecall; sym_kAssembler;
   sym_kNostackframe; sym_kInterrupt; sym_kNoreturn; sym_kIocheck; sym_kLocal; sym_kHardfloat;
   sym_kSoftfloat; sym_kMs_abi_default; sym_kMs_abi_cdecl; sym_kSaveregisters;
   sym_kSysv_abi_default; sym_kSysv_abi_cdecl; sym_kVectorcall; sym_kVarargs; sym_kWinapi];
   ACTIONS 11651 [sym_kAlias]; ACTIONS 2652 [sym_kAsm; sym_kBegin; sym_kClass; sym_kConst;
   sym_kConstructor; sym_kDestructor; sym_kExports; sym_kFunction]; ACTIONS 1016 [sym_kInline];
   ACTIONS 2652 [sym_kLabel; sym_kProcedure; sym_kResourcestring; sym_kThreadvar; sym_kType;
   sym_kUses; sym_kVar]].

(** State 1991. *)
Definition ts_parse_table_1991 : parse_row :=
  [STATE 2856 [sym__ppIf]; STATE 2638 [sym__procAttributeNoExt];
   STATE 2639 [sym__procAttributesPp]; STATE 15800 [sym_procAttribute];
   STATE 2110 [aux_sym__declProc_repeat1]; ACTIONS 13226 [anon_sym_LBRACK];
   ACTIONS 2692 [aux_sym_ppUsesBlock_token1]; ACTIONS 3 [sym__space];
   ACTIONS 5 [sym_ppDirective]; ACTIONS 3 [sym_comment]; ACTIONS 1016 [sym_kDefault;
   sym_kNodefault]; ACTIONS 11641 [sym_kDispId]; ACTIONS 2685 [sym_kGeneric; sym_kOperator];
   ACTIONS 11643 [sym_kPublic]; ACTIONS 2685 [sym_kForward]; ACTIONS 1016 [sym_kStatic;
   sym_kVirtual; sym_kAbstract; sym_kDynamic; sym_kOverride; sym_kOverload; sym_kReintroduce;
   sym_kStdcall; sym_kCdecl; sym_kCppdecl; sym_kPascal; sym_kRegister; sym_kMwpascal];
   ACTIONS 2685 [sym_kExternal]; ACTIONS 11645 [sym_kMessage]; ACTIONS 11647 [sym_kDeprecated];
   ACTIONS 1016 [sym_kExperimental; sym_kPlatform; sym_kUnimplemented; sym_kCvar];
   ACTIONS 11649 [sym_kExport]; ACTIONS 1016 [sym_kFar; sym_kNear; sym_kSafecall; sym_kAssembler;
   sym_kNostackframe; sym_kInterrupt; sym_kNoreturn; sym_kIocheck; sym_kLocal; sym_kHardfloat;
   sym_kSoftfloat; sym_kMs_abi_default; sym_kMs_abi_cdecl; sym_kSaveregisters;
   sym_kSysv_abi_default; sym_kSysv_abi_cdecl; sym_kVectorcall; sym_kVarargs; sym_kWinapi];
   ACTIONS 11651 [sym_kAlias]; ACTIONS 2685 [sym_kAsm; sym_kBegin; sym_kClass; sym_kConst;
   sym_kConstructor; sym_kDestructor; sym_kExports; sym_kFunction]; ACTIONS 1016 [sym_kInline];
   ACTIONS 2685 [sym_kLabel; sym_kProcedure; sym_kResourcestring; sym_kThreadvar; sym_kType;
   sym_kUses; sym_kVar]].

(** State 1992. *)
Definition ts_parse_table_1992 : parse_row :=
  [STATE 2856 [sym__ppIf]; STATE 2638 [sym__procAttributeNoExt];
   STATE 2639 [sym__procAttributesPp]; STATE 15800 [sym_procAttribute];
   STATE 2114 [aux_sym__declProc_repeat1]; ACTIONS 13229 [anon_sym_LBRACK];
   ACTIONS 2739 [aux_sym_ppUsesBlock_token1]; ACTIONS 3 [sym__space];
   ACTIONS 5 [sym_ppDirective]; ACTIONS 3 [sym_comment]; ACTIONS 1016 [sym_kDefault;
   sym_kNodefault]; ACTIONS 11641 [sym_kDispId]; ACTIONS 2732 [sym_kGeneric; sym_kOperator];
   ACTIONS 11643 [sym_kPublic]; ACTIONS 2732 [sym_kForward]; ACTIONS 1016 [sym_kStatic;
   sym_kVirtual; sym_kAbstract; sym_kDynamic; sym_kOverride; sym_kOverload; sym_kReintroduce;
   sym_kStdcall; sym_kCdecl; sym_kCppdecl; sym_kPascal; sym_kRegister; sym_kMwpascal];
   ACTIONS 2732 [sym_kExternal]; ACTIONS 11645 [sym_kMessage]; ACTIONS 11647 [sym_kDeprecated];
   ACTIONS 1016 [sym_kExperimental; sym_kPlatform; sym_kUnimplemented; sym_kCvar];
   ACTIONS 11649 [sym_kExport]; ACTIONS 1016 [sym_kFar; sym_kNear; sym_kSafecall; sym_kAssembler;
   sym_kNostackframe; sym_kInterrupt; sym_kNoreturn; sym_kIocheck; sym_kLocal; sym_kHardfloat;
   sym_kSoftfloat; sym_kMs_abi_default; sym_kMs_abi_cdecl; sym_kSaveregisters;
   sym_kSysv_abi_default; sym_kSysv_abi_cdecl; sym_kVectorcall; sym_kVarargs; sym_kWinapi];
   ACTIONS 11651 [sym_kAlias]; ACTIONS 2732 [sym_kAsm; sym_kBegin; sym_kClass; sym_kConst;
   sym_kConstructor; sym_kDestructor; sym_kExports; sym_kFunction]; ACTIONS 1016 [sym_kInline];
   ACTIONS 2732 [sym_kLabel; sym_kProcedure; sym_kResourcestring; sym_kThreadvar; sym_kType;
   sym_kUses; sym_kVar]].

(** State 1993. *)
Definition ts_parse_table_1993 : parse_row :=
  [STATE 13 [sym__ppIf]; STATE 2072 [sym_ppBlock; sym_declVar]; STATE 5128 [sym_rttiAttributes];
   STATE 2072 [aux_sym_declVars_repeat1]; STATE 5213 [aux_sym_declVar_repeat1];
   STATE 4094 [aux_sym_rttiAttributes_repeat2]; ACTIONS 3366 [ts_builtin_sym_end];
   ACTIONS 3368 [anon_sym_LBRACK]; ACTIONS 3373 [aux_sym_ppUsesBlock_token1];
   ACTIONS 3 [sym__space]; ACTIONS 5 [sym_ppDirective]; ACTIONS 3 [sym_comment];
   ACTIONS 13232 [sym_identifier]; ACTIONS 13234 [sym_kDefault; sym_kNodefault; sym_kDispId];
   ACTIONS 3366 [sym_kGeneric]; ACTIONS 13236 [sym_kOperator]; ACTIONS 13234 [sym_kPublic;
   sym_kStatic; sym_kVirtual; sym_kAbstract; sym_kDynamic; sym_kOverride; sym_kOverload;
   sym_kReintroduce; sym_kStdcall; sym_kCdecl; sym_kCppdecl; sym_kPascal; sym_kRegister;
   sym_kMwpascal; sym_kMessage; sym_kDeprecated; sym_kExperimental; sym_kPlatform;
   sym_kUnimplemented; sym_kCvar; sym_kExport; sym_kFar; sym_kNear; sym_kSafecall;
   sym_kAssembler; sym_kNostackframe; sym_kInterrupt; sym_kNoreturn; sym_kIocheck; sym_kLocal;
   sym_kHardfloat; sym_kSoftfloat; sym_kMs_abi_default; sym_kMs_abi_cdecl; sym_kSaveregisters;
   sym_kSysv_abi_default; sym_kSysv_abi_cdecl; sym_kVectorcall; sym_kVarargs; sym_kWinapi;
   sym_kAlias]; ACTIONS 3366 [sym_kBegin; sym_kClass; sym_kConst; sym_kConstructor;
   sym_kDestructor; sym_kExports; sym_kFunction; sym_kLabel; sym_kProcedure; sym_kResourcestring;
   sym_kThreadvar; sym_kType; sym_kUses; sym_kVar]].

(** State 1994. *)
Definition ts_parse_table_1994 : parse_row :=
  [STATE 2496 [sym__procAttribute]; STATE 14551 [sym_procAttribute];
   STATE 2112 [aux_sym_declProcFwd_repeat1]; ACTIONS 13239 [anon_sym_LBRACK];
   ACTIONS 7714 [aux_sym_ppUsesBlock_token1]; ACTIONS 3 [sym__space];
   ACTIONS 5 [sym_ppDirective]; ACTIONS 3 [sym_comment]; ACTIONS 1016 [sym_kDefault;
   sym_kNodefault]; ACTIONS 11641 [sym_kDispId]; ACTIONS 7714 [sym_kGeneric; sym_kOperator;
   sym_kPublished]; ACTIONS 7727 [sym_kPublic]; ACTIONS 7714 [sym_kProtected; sym_kPrivate;
   sym_kStrict; sym_kRequired; sym_kOptional]; ACTIONS 1016 [sym_kStatic; sym_kVirtual;
   sym_kAbstract; sym_kDynamic; sym_kOverride; sym_kOverload; sym_kReintroduce; sym_kStdcall;
   sym_kCdecl; sym_kCppdecl; sym_kPascal; sym_kRegister; sym_kMwpascal];
   ACTIONS 11645 [sym_kMessage]; ACTIONS 11647 [sym_kDeprecated];
   ACTIONS 1016 [sym_kExperimental; sym_kPlatform; sym_kUnimplemented; sym_kCvar];
   ACTIONS 11649 [sym_kExport]; ACTIONS 1016 [sym_kFar; sym_kNear; sym_kSafecall; sym_kAssembler;
   sym_kNostackframe; sym_kInterrupt; sym_kNoreturn; sym_kIocheck; sym_kLocal; sym_kHardfloat;
   sym_kSoftfloat; sym_kMs_abi_default; sym_kMs_abi_cdecl; sym_kSaveregisters;
   sym_kSysv_abi_default; sym_kSysv_abi_cdecl; sym_kVectorcall; sym_kVarargs; sym_kWinapi];
   ACTIONS 11651 [sym_kAlias]; ACTIONS 7714 [sym_kCase; sym_kClass; sym_kConst; sym_kConstructor;
   sym_kDestructor; sym_kEnd; sym_kFunction]; ACTIONS 1016 [sym_kInline];
   ACTIONS 7714 [sym_kProcedure; sym_kProperty; sym_kResourcestring; sym_kThreadvar; sym_kType;
   sym_kVar]].

(** State 1995. *)
Definition ts_parse_table_1995 : parse_row :=
  [STATE 2496 [sym__procAttribute]; STATE 14551 [sym_procAttribute];
   STATE 2000 [aux_sym_declProcFwd_repeat1]; ACTIONS 13242 [anon_sym_LBRACK];
   ACTIONS 7742 [aux_sym_ppUsesBlock_token1]; ACTIONS 3 [sym__space];
   ACTIONS 5 [sym_ppDirective]; ACTIONS 3 [sym_comment]; ACTIONS 1016 [sym_kDefault;
   sym_kNodefault]; ACTIONS 11641 [sym_kDispId]; ACTIONS 7742 [sym_kGeneric; sym_kOperator;
   sym_kPublished]; ACTIONS 7755 [sym_kPublic]; ACTIONS 7742 [sym_kProtected; sym_kPrivate;
   sym_kStrict; sym_kRequired; sym_kOptional]; ACTIONS 1016 [sym_kStatic; sym_kVirtual;
   sym_kAbstract; sym_kDynamic; sym_kOverride; sym_kOverload; sym_kReintroduce; sym_kStdcall;
   sym_kCdecl; sym_kCppdecl; sym_kPascal; sym_kRegister; sym_kMwpascal];
   ACTIONS 11645 [sym_kMessage]; ACTIONS 11647 [sym_kDeprecated];
   ACTIONS 1016 [sym_kExperimental; sym_kPlatform; sym_kUnimplemented; sym_kCvar];
   ACTIONS 11649 [sym_kExport]; ACTIONS 1016 [sym_kFar; sym_kNear; sym_kSafecall; sym_kAssembler;
   sym_kNostackframe; sym_kInterrupt; sym_kNoreturn; sym_kIocheck; sym_kLocal; sym_kHardfloat;
   sym_kSoftfloat; sym_kMs_abi_default; sym_kMs_abi_cdecl; sym_kSaveregisters;
   sym_kSysv_abi_default; sym_kSysv_abi_cdecl; sym_kVectorcall; sym_kVarargs; sym_kWinapi];
   ACTIONS 11651 [sym_kAlias]; ACTIONS 7742 [sym_kCase; sym_kClass; sym_kConst; sym_kConstructor;
   sym_kDestructor; sym_kEnd; sym_kFunction]; ACTIONS 1016 [sym_kInline];
   ACTIONS 7742 [sym_kProcedure; sym_kProperty; sym_kResourcestring; sym_kThreadvar; sym_kType;
   sym_kVar]].

(** State 1996. *)
Definition ts_parse_table_1996 : parse_row :=
  [STATE 2856 [sym__ppIf]; STATE 2638 [sym__procAttributeNoExt];
   STATE 2639 [sym__procAttributesPp]; STATE 15800 [sym_procAttribute];
   STATE 2095 [aux_sym__declProc_repeat1]; ACTIONS 13245 [anon_sym_LBRACK];
   ACTIONS 1546 [aux_sym_ppUsesBlock_token1]; ACTIONS 3 [sym__space];
   ACTIONS 5 [sym_ppDirective]; ACTIONS 3 [sym_comment]; ACTIONS 1016 [sym_kDefault;
   sym_kNodefault]; ACTIONS 11641 [sym_kDispId]; ACTIONS 1539 [sym_kGeneric; sym_kOperator];
   ACTIONS 11643 [sym_kPublic]; ACTIONS 1539 [sym_kForward]; ACTIONS 1016 [sym_kStatic;
   sym_kVirtual; sym_kAbstract; sym_kDynamic; sym_kOverride; sym_kOverload; sym_kReintroduce;
   sym_kStdcall; sym_kCdecl; sym_kCppdecl; sym_kPascal; sym_kRegister; sym_kMwpascal];
   ACTIONS 1539 [sym_kExternal]; ACTIONS 11645 [sym_kMessage]; ACTIONS 11647 [sym_kDeprecated];
   ACTIONS 1016 [sym_kExperimental; sym_kPlatform; sym_kUnimplemented; sym_kCvar];
   ACTIONS 11649 [sym_kExport]; ACTIONS 1016 [sym_kFar; sym_kNear; sym_kSafecall; sym_kAssembler;
   sym_kNostackframe; sym_kInterrupt; sym_kNoreturn; sym_kIocheck; sym_kLocal; sym_kHardfloat;
   sym_kSoftfloat; sym_kMs_abi_default; sym_kMs_abi_cdecl; sym_kSaveregisters;
   sym_kSysv_abi_default; sym_kSysv_abi_cdecl; sym_kVectorcall; sym_kVarargs; sym_kWinapi];
   ACTIONS 11651 [sym_kAlias]; ACTIONS 1539 [sym_kAsm; sym_kBegin; sym_kClass; sym_kConst;
   sym_kConstructor; sym_kDestructor; sym_kExports; sym_kFunction]; ACTIONS 1016 [sym_kInline];
   ACTIONS 1539 [sym_kLabel; sym_kProcedure; sym_kResourcestring; sym_kThreadvar; sym_kType;
   sym_kUses; sym_kVar]].

(** State 1997. *)
Definition ts_parse_table_1997 : parse_row :=
  [STATE 2496 [sym__procAttribute]; STATE 14551 [sym_procAttribute];
   STATE 2001 [aux_sym_declProcFwd_repeat1]; ACTIONS 13248 [anon_sym_LBRACK];
   ACTIONS 7770 [aux_sym_ppUsesBlock_token1]; ACTIONS 3 [sym__space];
   ACTIONS 5 [sym_ppDirective]; ACTIONS 3 [sym_comment]; ACTIONS 1016 [sym_kDefault;
   sym_kNodefault]; ACTIONS 11641 [sym_kDispId]; ACTIONS 7770 [sym_kGeneric; sym_kOperator;
   sym_kPublished]; ACTIONS 7783 [sym_kPublic]; ACTIONS 7770 [sym_kProtected; sym_kPrivate;
   sym_kStrict; sym_kRequired; sym_kOptional]; ACTIONS 1016 [sym_kStatic; sym_kVirtual;
   sym_kAbstract; sym_kDynamic; sym_kOverride; sym_kOverload; sym_kReintroduce; sym_kStdcall;
   sym_kCdecl; sym_kCppdecl; sym_kPascal; sym_kRegister; sym_kMwpascal];
   ACTIONS 11645 [sym_kMessage]; ACTIONS 11647 [sym_kDeprecated];
   ACTIONS 1016 [sym_kExperimental; sym_kPlatform; sym_kUnimplemented; sym_kCvar];
   ACTIONS 11649 [sym_kExport]; ACTIONS 1016 [sym_kFar; sym_kNear; sym_kSafecall; sym_kAssembler;
   sym_kNostackframe; sym_kInterrupt; sym_kNoreturn; sym_kIocheck; sym_kLocal; sym_kHardfloat;
   sym_kSoftfloat; sym_kMs_abi_default; sym_kMs_abi_cdecl; sym_kSaveregisters;
   sym_kSysv_abi_default; sym_kSysv_abi_cdecl; sym_kVectorcall; sym_kVarargs; sym_kWinapi];
   ACTIONS 11651 [sym_kAlias]; ACTIONS 7770 [sym_kCase; sym_kClass; sym_kConst; sym_kConstructor;
   sym_kDestructor; sym_kEnd; sym_kFunction]; ACTIONS 1016 [sym_kInline];
   ACTIONS 7770 [sym_kProcedure; sym_kProperty; sym_kResourcestring; sym_kThreadvar; sym_kType;
   sym_kVar]].

(** State 1998. *)
Definition ts_parse_table_1998 : parse_row :=
  [STATE 2496 [sym__procAttribute]; STATE 14551 [sym_procAttribute];
   STATE 2112 [aux_sym_declProcFwd_repeat1]; ACTIONS 13251 [anon_sym_LBRACK];
   ACTIONS 7798 [aux_sym_ppUsesBlock_token1]; ACTIONS 3 [sym__space];
   ACTIONS 5 [sym_ppDirective]; ACTIONS 3 [sym_comment]; ACTIONS 1016 [sym_kDefault;
   sym_kNodefault]; ACTIONS 11641 [sym_kDispId]; ACTIONS 7798 [sym_kGeneric; sym_kOperator;
   sym_kPublished]; ACTIONS 7811 [sym_kPublic]; ACTIONS 7798 [sym_kProtected; sym_kPrivate;
   sym_kStrict; sym_kRequired; sym_kOptional]; ACTIONS 1016 [sym_kStatic; sym_kVirtual;
   sym_kAbstract; sym_kDynamic; sym_kOverride; sym_kOverload; sym_kReintroduce; sym_kStdcall;
   sym_kCdecl; sym_kCppdecl; sym_kPascal; sym_kRegister; sym_kMwpascal];
   ACTIONS 11645 [sym_kMessage]; ACTIONS 11647 [sym_kDeprecated];
   ACTIONS 1016 [sym_kExperimental; sym_kPlatform; sym_kUnimplemented; sym_kCvar];
   ACTIONS 11649 [sym_kExport]; ACTIONS 1016 [sym_kFar; sym_kNear; sym_kSafecall; sym_kAssembler;
   sym_kNostackframe; sym_kInterrupt; sym_kNoreturn; sym_kIocheck; sym_kLocal; sym_kHardfloat;
   sym_kSoftfloat; sym_kMs_abi_default; sym_kMs_abi_cdecl; sym_kSaveregisters;
   sym_kSysv_abi_default; sym_kSysv_abi_cdecl; sym_kVectorcall; sym_kVarargs; sym_kWinapi];
   ACTIONS 11651 [sym_kAlias]; ACTIONS 7798 [sym_kCase; sym_kClass; sym_kConst; sym_kConstructor;
   sym_kDestructor; sym_kEnd; sym_kFunction]; ACTIONS 1016 [sym_kInline];
   ACTIONS 7798 [sym_kProcedure; sym_kProperty; sym_kResourcestring; sym_kThreadvar; sym_kType;
   sym_kVar]].

(** State 1999. *)
Definition ts_parse_table_1999 : parse_row :=
  [STATE 2496 [sym__procAttribute]; STATE 14551 [sym_procAttribute];
   STATE 2112 [aux_sym_declProcFwd_repeat1]; ACTIONS 13254 [anon_sym_LBRACK];
   ACTIONS 7826 [aux_sym_ppUsesBlock_token1]; ACTIONS 3 [sym__space];
   ACTIONS 5 [sym_ppDirective]; ACTIONS 3 [sym_comment]; ACTIONS 1016 [sym_kDefault;
   sym_kNodefault]; ACTIONS 11641 [sym_kDispId]; ACTIONS 7826 [sym_kGeneric; sym_kOperator;
   sym_kPublished]; ACTIONS 7839 [sym_kPublic]; ACTIONS 7826 [sym_kProtected; sym_kPrivate;
   sym_kStrict; sym_kRequired; sym_kOptional]; ACTIONS 1016 [sym_kStatic; sym_kVirtual;
   sym_kAbstract; sym_kDynamic; sym_kOverride; sym_kOverload; sym_kReintroduce; sym_kStdcall;
   sym_kCdecl; sym_kCppdecl; sym_kPascal; sym_kRegister; sym_kMwpascal];
   ACTIONS 11645 [sym_kMessage]; ACTIONS 11647 [sym_kDeprecated];
   ACTIONS 1016 [sym_kExperimental; sym_kPlatform; sym_kUnimplemented; sym_kCvar];
   ACTIONS 11649 [sym_kExport]; ACTIONS 1016 [sym_kFar; sym_kNear; sym_kSafecall; sym_kAssembler;
   sym_kNostackframe; sym_kInterrupt; sym_kNoreturn; sym_kIocheck; sym_kLocal; sym_kHardfloat;
   sym_kSoftfloat; sym_kMs_abi_default; sym_kMs_abi_cdecl; sym_kSaveregisters;
   sym_kSysv_abi_default; sym_kSysv_abi_cdecl; sym_kVectorcall; sym_kVarargs; sym_kWinapi];
   ACTIONS 11651 [sym_kAlias]; ACTIONS 7826 [sym_kCase; sym_kClass; sym_kConst; sym_kConstructor;
   sym_kDestructor; sym_kEnd; sym_kFunction]; ACTIONS 1016 [sym_kInline];
   ACTIONS 7826 [sym_kProcedure; sym_kProperty; sym_kResourcestring; sym_kThreadvar; sym_kType;
   sym_kVar]].

(** State 2000. *)
Definition ts_parse_table_2000 : parse_row :=
  [STATE 2496 [sym__procAttribute]; STATE 14551 [sym_procAttribute];
   STATE 2112 [aux_sym_declProcFwd_repeat1]; ACTIONS 13257 [anon_sym_LBRACK];
   ACTIONS 7854 [aux_sym_ppUsesBlock_token1]; ACTIONS 3 [sym__space];
   ACTIONS 5 [sym_ppDirective]; ACTIONS 3 [sym_comment]; ACTIONS 1016 [sym_kDefault;
   sym_kNodefault]; ACTIONS 11641 [sym_kDispId]; ACTIONS 7854 [sym_kGeneric; sym_kOperator;
   sym_kPublished]; ACTIONS 7867 [sym_kPublic]; ACTIONS 7854 [sym_kProtected; sym_kPrivate;
   sym_kStrict; sym_kRequired; sym_kOptional]; ACTIONS 1016 [sym_kStatic; sym_kVirtual;
   sym_kAbstract; sym_kDynamic; sym_kOverride; sym_kOverload; sym_kReintroduce; sym_kStdcall;
   sym_kCdecl; sym_kCppdecl; sym_kPascal; sym_kRegister; sym_kMwpascal];
   ACTIONS 11645 [sym_kMessage]; ACTIONS 11647 [sym_kDeprecated];
   ACTIONS 1016 [sym_kExperimental; sym_kPlatform; sym_kUnimplemented; sym_kCvar];
   ACTIONS 11649 [sym_kExport]; ACTIONS 1016 [sym_kFar; sym_kNear; sym_kSafecall; sym_kAssembler;
   sym_kNostackframe; sym_kInterrupt; sym_kNoreturn; sym_kIocheck; sym_kLocal; sym_kHardfloat;
   sym_kSoftfloat; sym_kMs_abi_default; sym_kMs_abi_cdecl; sym_kSaveregisters;
   sym_kSysv_abi_default; sym_kSysv_abi_cdecl; sym_kVectorcall; sym_kVarargs; sym_kWinapi];
   ACTIONS 11651 [sym_kAlias]; ACTIONS 7854 [sym_kCase; sym_kClass; sym_kConst; sym_kConstructor;
   sym_kDestructor; sym_kEnd; sym_kFunction]; ACTIONS 1016 [sym_kInline];
   ACTIONS 7854 [sym_kProcedure; sym_kProperty; sym_kResourcestring; sym_kThreadvar; sym_kType;
   sym_kVar]].

(** State 2001. *)
Definition ts_parse_table_2001 : parse_row :=
  [STATE 2496 [sym__procAttribute]; STATE 14551 [sym_procAttribute];
   STATE 2112 [aux_sym_declProcFwd_repeat1]; ACTIONS 13260 [anon_sym_LBRACK];
   ACTIONS 7882 [aux_sym_ppUsesBlock_token1]; ACTIONS 3 [sym__space];
   ACTIONS 5 [sym_ppDirective]; ACTIONS 3 [sym_comment]; ACTIONS 1016 [sym_kDefault;
   sym_kNodefault]; ACTIONS 11641 [sym_kDispId]; ACTIONS 7882 [sym_kGeneric; sym_kOperator;
   sym_kPublished]; ACTIONS 7895 [sym_kPublic]; ACTIONS 7882 [sym_kProtected; sym_kPrivate;
   sym_kStrict; sym_kRequired; sym_kOptional]; ACTIONS 1016 [sym_kStatic; sym_kVirtual;
   sym_kAbstract; sym_kDynamic; sym_kOverride; sym_kOverload; sym_kReintroduce; sym_kStdcall;
   sym_kCdecl; sym_kCppdecl; sym_kPascal; sym_kRegister; sym_kMwpascal];
   ACTIONS 11645 [sym_kMessage]; ACTIONS 11647 [sym_kDeprecated];
   ACTIONS 1016 [sym_kExperimental; sym_kPlatform; sym_kUnimplemented; sym_kCvar];
   ACTIONS 11649 [sym_kExport]; ACTIONS 1016 [sym_kFar; sym_kNear; sym_kSafecall; sym_kAssembler;
   sym_kNostackframe; sym_kInterrupt; sym_kNoreturn; sym_kIocheck; sym_kLocal; sym_kHardfloat;
   sym_kSoftfloat; sym_kMs_abi_default; sym_kMs_abi_cdecl; sym_kSaveregisters;
   sym_kSysv_abi_default; sym_kSysv_abi_cdecl; sym_kVectorcall; sym_kVarargs; sym_kWinapi];
   ACTIONS 11651 [sym_kAlias]; ACTIONS 7882 [sym_kCase; sym_kClass; sym_kConst; sym_kConstructor;
   sym_kDestructor; sym_kEnd; sym_kFunction]; ACTIONS 1016 [sym_kInline];
   ACTIONS 7882 [sym_kProcedure; sym_kProperty; sym_kResourcestring; sym_kThreadvar; sym_kType;
   sym_kVar]].

(** State 2002. *)
Definition ts_parse_table_2002 : parse_row :=
  [STATE 2856 [sym__ppIf]; STATE 2638 [sym__procAttributeNoExt];
   STATE 2639 [sym__procAttributesPp]; STATE 15800 [sym_procAttribute];
   STATE 2114 [aux_sym__declProc_repeat1]; ACTIONS 13263 [anon_sym_LBRACK];
   ACTIONS 1579 [aux_sym_ppUsesBlock_token1]; ACTIONS 3 [sym__space];
   ACTIONS 5 [sym_ppDirective]; ACTIONS 3 [sym_comment]; ACTIONS 1016 [sym_kDefault;
   sym_kNodefault]; ACTIONS 11641 [sym_kDispId]; ACTIONS 1572 [sym_kGeneric; sym_kOperator];
   ACTIONS 11643 [sym_kPublic]; ACTIONS 1572 [sym_kForward]; ACTIONS 1016 [sym_kStatic;
   sym_kVirtual; sym_kAbstract; sym_kDynamic; sym_kOverride; sym_kOverload; sym_kReintroduce;
   sym_kStdcall; sym_kCdecl; sym_kCppdecl; sym_kPascal; sym_kRegister; sym_kMwpascal];
   ACTIONS 1572 [sym_kExternal]; ACTIONS 11645 [sym_kMessage]; ACTIONS 11647 [sym_kDeprecated];
   ACTIONS 1016 [sym_kExperimental; sym_kPlatform; sym_kUnimplemented; sym_kCvar];
   ACTIONS 11649 [sym_kExport]; ACTIONS 1016 [sym_kFar; sym_kNear; sym_kSafecall; sym_kAssembler;
   sym_kNostackframe; sym_kInterrupt; sym_kNoreturn; sym_kIocheck; sym_kLocal; sym_kHardfloat;
   sym_kSoftfloat; sym_kMs_abi_default; sym_kMs_abi_cdecl; sym_kSaveregisters;
   sym_kSysv_abi_default; sym_kSysv_abi_cdecl; sym_kVectorcall; sym_kVarargs; sym_kWinapi];
   ACTIONS 11651 [sym_kAlias]; ACTIONS 1572 [sym_kAsm; sym_kBegin; sym_kClass; sym_kConst;
   sym_kConstructor; sym_kDestructor; sym_kExports; sym_kFunction]; ACTIONS 1016 [sym_kInline];
   ACTIONS 1572 [sym_kLabel; sym_kProcedure; sym_kResourcestring; sym_kThreadvar; sym_kType;
   sym_kUses; sym_kVar]].

(** State 2003. *)
Definition ts_parse_table_2003 : parse_row :=
  [STATE 2856 [sym__ppIf]; STATE 2638 [sym__procAttributeNoExt];
   STATE 2639 [sym__procAttributesPp]; STATE 15800 [sym_procAttribute];
   STATE 2099 [aux_sym__declProc_repeat1]; ACTIONS 13266 [anon_sym_LBRACK];
   ACTIONS 1624 [aux_sym_ppUsesBlock_token1]; ACTIONS 3 [sym__space];
   ACTIONS 5 [sym_ppDirective]; ACTIONS 3 [sym_comment]; ACTIONS 1016 [sym_kDefault;
   sym_kNodefault]; ACTIONS 11641 [sym_kDispId]; ACTIONS 1617 [sym_kGeneric; sym_kOperator];
   ACTIONS 11643 [sym_kPublic]; ACTIONS 1617 [sym_kForward]; ACTIONS 1016 [sym_kStatic;
   sym_kVirtual; sym_kAbstract; sym_kDynamic; sym_kOverride; sym_kOverload; sym_kReintroduce;
   sym_kStdcall; sym_kCdecl; sym_kCppdecl; sym_kPascal; sym_kRegister; sym_kMwpascal];
   ACTIONS 1617 [sym_kExternal]; ACTIONS 11645 [sym_kMessage]; ACTIONS 11647 [sym_kDeprecated];
   ACTIONS 1016 [sym_kExperimental; sym_kPlatform; sym_kUnimplemented; sym_kCvar];
   ACTIONS 11649 [sym_kExport]; ACTIONS 1016 [sym_kFar; sym_kNear; sym_kSafecall; sym_kAssembler;
   sym_kNostackframe; sym_kInterrupt; sym_kNoreturn; sym_kIocheck; sym_kLocal; sym_kHardfloat;
   sym_kSoftfloat; sym_kMs_abi_default; sym_kMs_abi_cdecl; sym_kSaveregisters;
   sym_kSysv_abi_default; sym_kSysv_abi_cdecl; sym_kVectorcall; sym_kVarargs; sym_kWinapi];
   ACTIONS 11651 [sym_kAlias]; ACTIONS 1617 [sym_kAsm; sym_kBegin; sym_kClass; sym_kConst;
   sym_kConstructor; sym_kDestructor; sym_kExports; sym_kFunction]; ACTIONS 1016 [sym_kInline];
   ACTIONS 1617 [sym_kLabel; sym_kProcedure; sym_kResourcestring; sym_kThreadvar; sym_kType;
   sym_kUses; sym_kVar]].

(** State 2004. *)
Definition ts_parse_table_2004 : parse_row :=
  [STATE 2856 [sym__ppIf]; STATE 2638 [sym__procAttributeNoExt];
   STATE 2639 [sym__procAttributesPp]; STATE 15800 [sym_procAttribute];
   STATE 2115 [aux_sym__declProc_repeat1]; ACTIONS 13269 [anon_sym_LBRACK];
   ACTIONS 1655 [aux_sym_ppUsesBlock_token1]; ACTIONS 3 [sym__space];
   ACTIONS 5 [sym_ppDirective]; ACTIONS 3 [sym_comment]; ACTIONS 1016 [sym_kDefault;
   sym_kNodefault]; ACTIONS 11641 [sym_kDispId]; ACTIONS 1648 [sym_kGeneric; sym_kOperator];
   ACTIONS 11643 [sym_kPublic]; ACTIONS 1648 [sym_kForward]; ACTIONS 1016 [sym_kStatic;
   sym_kVirtual; sym_kAbstract; sym_kDynamic; sym_kOverride; sym_kOverload; sym_kReintroduce;
   sym_kStdcall; sym_kCdecl; sym_kCppdecl; sym_kPascal; sym_kRegister; sym_kMwpascal];
   ACTIONS 1648 [sym_kExternal]; ACTIONS 11645 [sym_kMessage]; ACTIONS 11647 [sym_kDeprecated];
   ACTIONS 1016 [sym_kExperimental; sym_kPlatform; sym_kUnimplemented; sym_kCvar];
   ACTIONS 11649 [sym_kExport]; ACTIONS 1016 [sym_kFar; sym_kNear; sym_kSafecall; sym_kAssembler;
   sym_kNostackframe; sym_kInterrupt; sym_kNoreturn; sym_kIocheck; sym_kLocal; sym_kHardfloat;
   sym_kSoftfloat; sym_kMs_abi_default; sym_kMs_abi_cdecl; sym_kSaveregisters;
   sym_kSysv_abi_default; sym_kSysv_abi_cdecl; sym_kVectorcall; sym_kVarargs; sym_kWinapi];
   ACTIONS 11651 [sym_kAlias]; ACTIONS 1648 [sym_kAsm; sym_kBegin; sym_kClass; sym_kConst;
   sym_kConstructor; sym_kDestructor; sym_kExports; sym_kFunction]; ACTIONS 1016 [sym_kInline];
   ACTIONS 1648 [sym_kLabel; sym_kProcedure; sym_kResourcestring; sym_kThreadvar; sym_kType;
   sym_kUses; sym_kVar]].

(** State 2005. *)
Definition ts_parse_table_2005 : parse_row :=
  [STATE 2856 [sym__ppIf]; STATE 2638 [sym__procAttributeNoExt];
   STATE 2639 [sym__procAttributesPp]; STATE 15800 [sym_procAttribute];
   STATE 2114 [aux_sym__declProc_repeat1]; ACTIONS 13272 [anon_sym_LBRACK];
   ACTIONS 2848 [aux_sym_ppUsesBlock_token1]; ACTIONS 3 [sym__space];
   ACTIONS 5 [sym_ppDirective]; ACTIONS 3 [sym_comment]; ACTIONS 1016 [sym_kDefault;
   sym_kNodefault]; ACTIONS 11641 [sym_kDispId]; ACTIONS 2841 [sym_kGeneric; sym_kOperator];
   ACTIONS 11643 [sym_kPublic]; ACTIONS 2841 [sym_kForward]; ACTIONS 1016 [sym_kStatic;
   sym_kVirtual; sym_kAbstract; sym_kDynamic; sym_kOverride; sym_kOverload; sym_kReintroduce;
   sym_kStdcall; sym_kCdecl; sym_kCppdecl; sym_kPascal; sym_kRegister; sym_kMwpascal];
   ACTIONS 2841 [sym_kExternal]; ACTIONS 11645 [sym_kMessage]; ACTIONS 11647 [sym_kDeprecated];
   ACTIONS 1016 [sym_kExperimental; sym_kPlatform; sym_kUnimplemented; sym_kCvar];
   ACTIONS 11649 [sym_kExport]; ACTIONS 1016 [sym_kFar; sym_kNear; sym_kSafecall; sym_kAssembler;
   sym_kNostackframe; sym_kInterrupt; sym_kNoreturn; sym_kIocheck; sym_kLocal; sym_kHardfloat;
   sym_kSoftfloat; sym_kMs_abi_default; sym_kMs_abi_cdecl; sym_kSaveregisters;
   sym_kSysv_abi_default; sym_kSysv_abi_cdecl; sym_kVectorcall; sym_kVarargs; sym_kWinapi];
   ACTIONS 11651 [sym_kAlias]; ACTIONS 2841 [sym_kAsm; sym_kBegin; sym_kClass; sym_kConst;
   sym_kConstructor; sym_kDestructor; sym_kExports; sym_kFunction]; ACTIONS 1016 [sym_kInline];
   ACTIONS 2841 [sym_kLabel; sym_kProcedure; sym_kResourcestring; sym_kThreadvar; sym_kType;
   sym_kUses; sym_kVar]].

(** State 2006. *)
Definition ts_parse_table_2006 : parse_row :=
  [STATE 2856 [sym__ppIf]; STATE 2638 [sym__procAttributeNoExt];
   STATE 2639 [sym__procAttributesPp]; STATE 15800 [sym_procAttribute];
   STATE 2114 [aux_sym__declProc_repeat1]; ACTIONS 13275 [anon_sym_LBRACK];
   ACTIONS 2881 [aux_sym_ppUsesBlock_token1]; ACTIONS 3 [sym__space];
   ACTIONS 5 [sym_ppDirective]; ACTIONS 3 [sym_comment]; ACTIONS 1016 [sym_kDefault;
   sym_kNodefault]; ACTIONS 11641 [sym_kDispId]; ACTIONS 2874 [sym_kGeneric; sym_kOperator];
   ACTIONS 11643 [sym_kPublic]; ACTIONS 2874 [sym_kForward]; ACTIONS 1016 [sym_kStatic;
   sym_kVirtual; sym_kAbstract; sym_kDynamic; sym_kOverride; sym_kOverload; sym_kReintroduce;
   sym_kStdcall; sym_kCdecl; sym_kCppdecl; sym_kPascal; sym_kRegister; sym_kMwpascal];
   ACTIONS 2874 [sym_kExternal]; ACTIONS 11645 [sym_kMessage]; ACTIONS 11647 [sym_kDeprecated];
   ACTIONS 1016 [sym_kExperimental; sym_kPlatform; sym_kUnimplemented; sym_kCvar];
   ACTIONS 11649 [sym_kExport]; ACTIONS 1016 [sym_kFar; sym_kNear; sym_kSafecall; sym_kAssembler;
   sym_kNostackframe; sym_kInterrupt; sym_kNoreturn; sym_kIocheck; sym_kLocal; sym_kHardfloat;
   sym_kSoftfloat; sym_kMs_abi_default; sym_kMs_abi_cdecl; sym_kSaveregisters;
   sym_kSysv_abi_default; sym_kSysv_abi_cdecl; sym_kVectorcall; sym_kVarargs; sym_kWinapi];
   ACTIONS 11651 [sym_kAlias]; ACTIONS 2874 [sym_kAsm; sym_kBegin; sym_kClass; sym_kConst;
   sym_kConstructor; sym_kDestructor; sym_kExports; sym_kFunction]; ACTIONS 1016 [sym_kInline];
   ACTIONS 2874 [sym_kLabel; sym_kProcedure; sym_kResourcestring; sym_kThreadvar; sym_kType;
   sym_kUses; sym_kVar]].

(** State 2007. *)
Definition ts_parse_table_2007 : parse_row :=
  [STATE 2856 [sym__ppIf]; STATE 2638 [sym__procAttributeNoExt];
   STATE 2639 [sym__procAttributesPp]; STATE 15800 [sym_procAttribute];
   STATE 2138 [aux_sym__declProc_repeat1]; ACTIONS 13278 [anon_sym_LBRACK];
   ACTIONS 2914 [aux_sym_ppUsesBlock_token1]; ACTIONS 3 [sym__space];
   ACTIONS 5 [sym_ppDirective]; ACTIONS 3 [sym_comment]; ACTIONS 1016 [sym_kDefault;
   sym_kNodefault]; ACTIONS 11641 [sym_kDispId]; ACTIONS 2907 [sym_kGeneric; sym_kOperator];
   ACTIONS 11643 [sym_kPublic]; ACTIONS 2907 [sym_kForward]; ACTIONS 1016 [sym_kStatic;
   sym_kVirtual; sym_kAbstract; sym_kDynamic; sym_kOverride; sym_kOverload; sym_kReintroduce;
   sym_kStdcall; sym_kCdecl; sym_kCppdecl; sym_kPascal; sym_kRegister; sym_kMwpascal];
   ACTIONS 2907 [sym_kExternal]; ACTIONS 11645 [sym_kMessage]; ACTIONS 11647 [sym_kDeprecated];
   ACTIONS 1016 [sym_kExperimental; sym_kPlatform; sym_kUnimplemented; sym_kCvar];
   ACTIONS 11649 [sym_kExport]; ACTIONS 1016 [sym_kFar; sym_kNear; sym_kSafecall; sym_kAssembler;
   sym_kNostackframe; sym_kInterrupt; sym_kNoreturn; sym_kIocheck; sym_kLocal; sym_kHardfloat;
   sym_kSoftfloat; sym_kMs_abi_default; sym_kMs_abi_cdecl; sym_kSaveregisters;
   sym_kSysv_abi_default; sym_kSysv_abi_cdecl; sym_kVectorcall; sym_kVarargs; sym_kWinapi];
   ACTIONS 11651 [sym_kAlias]; ACTIONS 2907 [sym_kAsm; sym_kBegin; sym_kClass; sym_kConst;
   sym_kConstructor; sym_kDestructor; sym_kExports; sym_kFunction]; ACTIONS 1016 [sym_kInline];
   ACTIONS 2907 [sym_kLabel; sym_kProcedure; sym_kResourcestring; sym_kThreadvar; sym_kType;
   sym_kUses; sym_kVar]].

(** State 2008. *)
Definition ts_parse_table_2008 : parse_row :=
  [STATE 2856 [sym__ppIf]; STATE 2638 [sym__procAttributeNoExt];
   STATE 2639 [sym__procAttributesPp]; STATE 15800 [sym_procAttribute];
   STATE 2114 [aux_sym__declProc_repeat1]; ACTIONS 13281 [anon_sym_LBRACK];
   ACTIONS 1149 [aux_sym_ppUsesBlock_token1]; ACTIONS 3 [sym__space];
   ACTIONS 5 [sym_ppDirective]; ACTIONS 3 [sym_comment]; ACTIONS 1016 [sym_kDefault;
   sym_kNodefault]; ACTIONS 11641 [sym_kDispId]; ACTIONS 1142 [sym_kGeneric; sym_kOperator];
   ACTIONS 11643 [sym_kPublic]; ACTIONS 1142 [sym_kForward]; ACTIONS 1016 [sym_kStatic;
   sym_kVirtual; sym_kAbstract; sym_kDynamic; sym_kOverride; sym_kOverload; sym_kReintroduce;
   sym_kStdcall; sym_kCdecl; sym_kCppdecl; sym_kPascal; sym_kRegister; sym_kMwpascal];
   ACTIONS 1142 [sym_kExternal]; ACTIONS 11645 [sym_kMessage]; ACTIONS 11647 [sym_kDeprecated];
   ACTIONS 1016 [sym_kExperimental; sym_kPlatform; sym_kUnimplemented; sym_kCvar];
   ACTIONS 11649 [sym_kExport]; ACTIONS 1016 [sym_kFar; sym_kNear; sym_kSafecall; sym_kAssembler;
   sym_kNostackframe; sym_kInterrupt; sym_kNoreturn; sym_kIocheck; sym_kLocal; sym_kHardfloat;
   sym_kSoftfloat; sym_kMs_abi_default; sym_kMs_abi_cdecl; sym_kSaveregisters;
   sym_kSysv_abi_default; sym_kSysv_abi_cdecl; sym_kVectorcall; sym_kVarargs; sym_kWinapi];
   ACTIONS 11651 [sym_kAlias]; ACTIONS 1142 [sym_kAsm; sym_kBegin; sym_kClass; sym_kConst;
   sym_kConstructor; sym_kDestructor; sym_kExports; sym_kFunction]; ACTIONS 1016 [sym_kInline];
   ACTIONS 1142 [sym_kLabel; sym_kProcedure; sym_kResourcestring; sym_kThreadvar; sym_kType;
   sym_kUses; sym_kVar]].

(** State 2009. *)
Definition ts_parse_table_2009 : parse_row :=
  [STATE 2496 [sym__procAttribute]; STATE 14551 [sym_procAttribute];
   STATE 2010 [aux_sym_declProcFwd_repeat1]; ACTIONS 13284 [anon_sym_LBRACK];
   ACTIONS 7910 [aux_sym_ppUsesBlock_token1]; ACTIONS 3 [sym__space];
   ACTIONS 5 [sym_ppDirective]; ACTIONS 3 [sym_comment]; ACTIONS 1016 [sym_kDefault;
   sym_kNodefault]; ACTIONS 11641 [sym_kDispId]; ACTIONS 7910 [sym_kGeneric; sym_kOperator;
   sym_kPublished]; ACTIONS 7923 [sym_kPublic]; ACTIONS 7910 [sym_kProtected; sym_kPrivate;
   sym_kStrict; sym_kRequired; sym_kOptional]; ACTIONS 1016 [sym_kStatic; sym_kVirtual;
   sym_kAbstract; sym_kDynamic; sym_kOverride; sym_kOverload; sym_kReintroduce; sym_kStdcall;
   sym_kCdecl; sym_kCppdecl; sym_kPascal; sym_kRegister; sym_kMwpascal];
   ACTIONS 11645 [sym_kMessage]; ACTIONS 11647 [sym_kDeprecated];
   ACTIONS 1016 [sym_kExperimental; sym_kPlatform; sym_kUnimplemented; sym_kCvar];
   ACTIONS 11649 [sym_kExport]; ACTIONS 1016 [sym_kFar; sym_kNear; sym_kSafecall; sym_kAssembler;
   sym_kNostackframe; sym_kInterrupt; sym_kNoreturn; sym_kIocheck; sym_kLocal; sym_kHardfloat;
   sym_kSoftfloat; sym_kMs_abi_default; sym_kMs_abi_cdecl; sym_kSaveregisters;
   sym_kSysv_abi_default; sym_kSysv_abi_cdecl; sym_kVectorcall; sym_kVarargs; sym_kWinapi];
   ACTIONS 11651 [sym_kAlias]; ACTIONS 7910 [sym_kCase; sym_kClass; sym_kConst; sym_kConstructor;
   sym_kDestructor; sym_kEnd; sym_kFunction]; ACTIONS 1016 [sym_kInline];
   ACTIONS 7910 [sym_kProcedure; sym_kProperty; sym_kResourcestring; sym_kThreadvar; sym_kType;
   sym_kVar]].

(** State 2010. *)
Definition ts_parse_table_2010 : parse_row :=
  [STATE 2496 [sym__procAttribute]; STATE 14551 [sym_procAttribute];
   STATE 2112 [aux_sym_declProcFwd_repeat1]; ACTIONS 13287 [anon_sym_LBRACK];
   ACTIONS 7938 [aux_sym_ppUsesBlock_token1]; ACTIONS 3 [sym__space];
   ACTIONS 5 [sym_ppDirective]; ACTIONS 3 [sym_comment]; ACTIONS 1016 [sym_kDefault;
   sym_kNodefault]; ACTIONS 11641 [sym_kDispId]; ACTIONS 7938 [sym_kGeneric; sym_kOperator;
   sym_kPublished]; ACTIONS 7951 [sym_kPublic]; ACTIONS 7938 [sym_kProtected; sym_kPrivate;
   sym_kStrict; sym_kRequired; sym_kOptional]; ACTIONS 1016 [sym_kStatic; sym_kVirtual;
   sym_kAbstract; sym_kDynamic; sym_kOverride; sym_kOverload; sym_kReintroduce; sym_kStdcall;
   sym_kCdecl; sym_kCppdecl; sym_kPascal; sym_kRegister; sym_kMwpascal];
   ACTIONS 11645 [sym_kMessage]; ACTIONS 11647 [sym_kDeprecated];
   ACTIONS 1016 [sym_kExperimental; sym_kPlatform; sym_kUnimplemented; sym_kCvar];
   ACTIONS 11649 [sym_kExport]; ACTIONS 1016 [sym_kFar; sym_kNear; sym_kSafecall; sym_kAssembler;
   sym_kNostackframe; sym_kInterrupt; sym_kNoreturn; sym_kIocheck; sym_kLocal; sym_kHardfloat;
   sym_kSoftfloat; sym_kMs_abi_default; sym_kMs_abi_cdecl; sym_kSaveregisters;
   sym_kSysv_abi_default; sym_kSysv_abi_cdecl; sym_kVectorcall; sym_kVarargs; sym_kWinapi];
   ACTIONS 11651 [sym_kAlias]; ACTIONS 7938 [sym_kCase; sym_kClass; sym_kConst; sym_kConstructor;
   sym_kDestructor; sym_kEnd; sym_kFunction]; ACTIONS 1016 [sym_kInline];
   ACTIONS 7938 [sym_kProcedure; sym_kProperty; sym_kResourcestring; sym_kThreadvar; sym_kType;
   sym_kVar]].

(** State 2011. *)
Definition ts_parse_table_2011 : parse_row :=
  [STATE 23 [sym__ppIf]; STATE 2016 [sym_ppBlock; sym_declVar]; STATE 5435 [sym_rttiAttributes];
   STATE 2016 [aux_sym_declVars_repeat1]; STATE 5436 [aux_sym_declVar_repeat1];
   STATE 4094 [aux_sym_rttiAttributes_repeat2]; ACTIONS 3368 [anon_sym_LBRACK];
   ACTIONS 3373 [aux_sym_ppUsesBlock_token1]; ACTIONS 3 [sym__space];
   ACTIONS 5 [sym_ppDirective]; ACTIONS 3 [sym_comment]; ACTIONS 13290 [sym_identifier];
   ACTIONS 13292 [sym_kDefault; sym_kNodefault; sym_kDispId]; ACTIONS 3366 [sym_kGeneric];
   ACTIONS 13294 [sym_kOperator]; ACTIONS 13292 [sym_kPublic; sym_kStatic; sym_kVirtual;
   sym_kAbstract; sym_kDynamic; sym_kOverride; sym_kOverload; sym_kReintroduce; sym_kStdcall;
   sym_kCdecl; sym_kCppdecl; sym_kPascal; sym_kRegister; sym_kMwpascal; sym_kMessage;
   sym_kDeprecated; sym_kExperimental; sym_kPlatform; sym_kUnimplemented; sym_kCvar; sym_kExport;
   sym_kFar; sym_kNear; sym_kSafecall; sym_kAssembler; sym_kNostackframe; sym_kInterrupt;
   sym_kNoreturn; sym_kIocheck; sym_kLocal; sym_kHardfloat; sym_kSoftfloat; sym_kMs_abi_default;
   sym_kMs_abi_cdecl; sym_kSaveregisters; sym_kSysv_abi_default; sym_kSysv_abi_cdecl;
   sym_kVectorcall; sym_kVarargs; sym_kWinapi; sym_kAlias]; ACTIONS 3366 [sym_kAsm; sym_kBegin;
   sym_kClass; sym_kConst; sym_kConstructor; sym_kDestructor; sym_kExports; sym_kFunction;
   sym_kLabel; sym_kProcedure; sym_kResourcestring; sym_kThreadvar; sym_kType; sym_kUses;
   sym_kVar]].

(** State 2012. *)
Definition ts_parse_table_2012 : parse_row :=
  [STATE 23 [sym__ppIf]; STATE 2032 [sym_ppBlock; sym_declVar]; STATE 5435 [sym_rttiAttributes];
   STATE 2032 [aux_sym_declVars_repeat1]; STATE 5436 [aux_sym_declVar_repeat1];
   STATE 4094 [aux_sym_rttiAttributes_repeat2]; ACTIONS 3633 [anon_sym_LBRACK];
   ACTIONS 3638 [aux_sym_ppUsesBlock_token1]; ACTIONS 3 [sym__space];
   ACTIONS 5 [sym_ppDirective]; ACTIONS 3 [sym_comment]; ACTIONS 13290 [sym_identifier];
   ACTIONS 13292 [sym_kDefault; sym_kNodefault; sym_kDispId]; ACTIONS 3631 [sym_kGeneric];
   ACTIONS 13297 [sym_kOperator]; ACTIONS 13292 [sym_kPublic; sym_kStatic; sym_kVirtual;
   sym_kAbstract; sym_kDynamic; sym_kOverride; sym_kOverload; sym_kReintroduce; sym_kStdcall;
   sym_kCdecl; sym_kCppdecl; sym_kPascal; sym_kRegister; sym_kMwpascal; sym_kMessage;
   sym_kDeprecated; sym_kExperimental; sym_kPlatform; sym_kUnimplemented; sym_kCvar; sym_kExport;
   sym_kFar; sym_kNear; sym_kSafecall; sym_kAssembler; sym_kNostackframe; sym_kInterrupt;
   sym_kNoreturn; sym_kIocheck; sym_kLocal; sym_kHardfloat; sym_kSoftfloat; sym_kMs_abi_default;
   sym_kMs_abi_cdecl; sym_kSaveregisters; sym_kSysv_abi_default; sym_kSysv_abi_cdecl;
   sym_kVectorcall; sym_kVarargs; sym_kWinapi; sym_kAlias]; ACTIONS 3631 [sym_kAsm; sym_kBegin;
   sym_kClass; sym_kConst; sym_kConstructor; sym_kDestructor; sym_kExports; sym_kFunction;
   sym_kLabel; sym_kProcedure; sym_kResourcestring; sym_kThreadvar; sym_kType; sym_kUses;
   sym_kVar]].

(** State 2013. *)
Definition ts_parse_table_2013 : parse_row :=
  [STATE 2856 [sym__ppIf]; STATE 2638 [sym__procAttributeNoExt];
   STATE 2639 [sym__procAttributesPp]; STATE 15800 [sym_procAttribute];
   STATE 2029 [aux_sym__declProc_repeat1]; ACTIONS 13300 [anon_sym_LBRACK];
   ACTIONS 1341 [aux_sym_ppUsesBlock_token1]; ACTIONS 3 [sym__space];
   ACTIONS 5 [sym_ppDirective]; ACTIONS 3 [sym_comment]; ACTIONS 1016 [sym_kDefault;
   sym_kNodefault]; ACTIONS 11641 [sym_kDispId]; ACTIONS 1334 [sym_kGeneric; sym_kOperator];
   ACTIONS 11643 [sym_kPublic]; ACTIONS 1334 [sym_kForward]; ACTIONS 1016 [sym_kStatic;
   sym_kVirtual; sym_kAbstract; sym_kDynamic; sym_kOverride; sym_kOverload; sym_kReintroduce;
   sym_kStdcall; sym_kCdecl; sym_kCppdecl; sym_kPascal; sym_kRegister; sym_kMwpascal];
   ACTIONS 1334 [sym_kExternal]; ACTIONS 11645 [sym_kMessage]; ACTIONS 11647 [sym_kDeprecated];
   ACTIONS 1016 [sym_kExperimental; sym_kPlatform; sym_kUnimplemented; sym_kCvar];
   ACTIONS 11649 [sym_kExport]; ACTIONS 1016 [sym_kFar; sym_kNear; sym_kSafecall; sym_kAssembler;
   sym_kNostackframe; sym_kInterrupt; sym_kNoreturn; sym_kIocheck; sym_kLocal; sym_kHardfloat;
   sym_kSoftfloat; sym_kMs_abi_default; sym_kMs_abi_cdecl; sym_kSaveregisters;
   sym_kSysv_abi_default; sym_kSysv_abi_cdecl; sym_kVectorcall; sym_kVarargs; sym_kWinapi];
   ACTIONS 11651 [sym_kAlias]; ACTIONS 1334 [sym_kAsm; sym_kBegin; sym_kClass; sym_kConst;
   sym_kConstructor; sym_kDestructor; sym_kExports; sym_kFunction]; ACTIONS 1016 [sym_kInline];
   ACTIONS 1334 [sym_kLabel; sym_kProcedure; sym_kResourcestring; sym_kThreadvar; sym_kType;
   sym_kUses; sym_kVar]].

(** State 2014. *)
Definition ts_parse_table_2014 : parse_row :=
  [STATE 2496 [sym__procAttribute]; STATE 14551 [sym_procAttribute];
   STATE 2120 [aux_sym_declProcFwd_repeat1]; ACTIONS 13303 [anon_sym_LBRACK];
   ACTIONS 8982 [aux_sym_ppUsesBlock_token1]; ACTIONS 3 [sym__space];
   ACTIONS 5 [sym_ppDirective]; ACTIONS 3 [sym_comment]; ACTIONS 1016 [sym_kDefault;
   sym_kNodefault]; ACTIONS 11641 [sym_kDispId]; ACTIONS 8982 [sym_kGeneric; sym_kOperator;
   sym_kPublished]; ACTIONS 8995 [sym_kPublic]; ACTIONS 8982 [sym_kProtected; sym_kPrivate;
   sym_kStrict; sym_kRequired; sym_kOptional]; ACTIONS 1016 [sym_kStatic; sym_kVirtual;
   sym_kAbstract; sym_kDynamic; sym_kOverride; sym_kOverload; sym_kReintroduce; sym_kStdcall;
   sym_kCdecl; sym_kCppdecl; sym_kPascal; sym_kRegister; sym_kMwpascal];
   ACTIONS 11645 [sym_kMessage]; ACTIONS 11647 [sym_kDeprecated];
   ACTIONS 1016 [sym_kExperimental; sym_kPlatform; sym_kUnimplemented; sym_kCvar];
   ACTIONS 11649 [sym_kExport]; ACTIONS 1016 [sym_kFar; sym_kNear; sym_kSafecall; sym_kAssembler;
   sym_kNostackframe; sym_kInterrupt; sym_kNoreturn; sym_kIocheck; sym_kLocal; sym_kHardfloat;
   sym_kSoftfloat; sym_kMs_abi_default; sym_kMs_abi_cdecl; sym_kSaveregisters;
   sym_kSysv_abi_default; sym_kSysv_abi_cdecl; sym_kVectorcall; sym_kVarargs; sym_kWinapi];
   ACTIONS 11651 [sym_kAlias]; ACTIONS 8982 [sym_kCase; sym_kClass; sym_kConst; sym_kConstructor;
   sym_kDestructor; sym_kEnd; sym_kFunction]; ACTIONS 1016 [sym_kInline];
   ACTIONS 8982 [sym_kProcedure; sym_kProperty; sym_kResourcestring; sym_kThreadvar; sym_kType;
   sym_kVar]].

(** State 2015. *)
Definition ts_parse_table_2015 : parse_row :=
  [STATE 2496 [sym__procAttribute]; STATE 14551 [sym_procAttribute];
   STATE 2112 [aux_sym_declProcFwd_repeat1]; ACTIONS 13306 [anon_sym_LBRACK];
   ACTIONS 9010 [aux_sym_ppUsesBlock_token1]; ACTIONS 3 [sym__space];
   ACTIONS 5 [sym_ppDirective]; ACTIONS 3 [sym_comment]; ACTIONS 1016 [sym_kDefault;
   sym_kNodefault]; ACTIONS 11641 [sym_kDispId]; ACTIONS 9010 [sym_kGeneric; sym_kOperator;
   sym_kPublished]; ACTIONS 9023 [sym_kPublic]; ACTIONS 9010 [sym_kProtected; sym_kPrivate;
   sym_kStrict; sym_kRequired; sym_kOptional]; ACTIONS 1016 [sym_kStatic; sym_kVirtual;
   sym_kAbstract; sym_kDynamic; sym_kOverride; sym_kOverload; sym_kReintroduce; sym_kStdcall;
   sym_kCdecl; sym_kCppdecl; sym_kPascal; sym_kRegister; sym_kMwpascal];
   ACTIONS 11645 [sym_kMessage]; ACTIONS 11647 [sym_kDeprecated];
   ACTIONS 1016 [sym_kExperimental; sym_kPlatform; sym_kUnimplemented; sym_kCvar];
   ACTIONS 11649 [sym_kExport]; ACTIONS 1016 [sym_kFar; sym_kNear; sym_kSafecall; sym_kAssembler;
   sym_kNostackframe; sym_kInterrupt; sym_kNoreturn; sym_kIocheck; sym_kLocal; sym_kHardfloat;
   sym_kSoftfloat; sym_kMs_abi_default; sym_kMs_abi_cdecl; sym_kSaveregisters;
   sym_kSysv_abi_default; sym_kSysv_abi_cdecl; sym_kVectorcall; sym_kVarargs; sym_kWinapi];
   ACTIONS 11651 [sym_kAlias]; ACTIONS 9010 [sym_kCase; sym_kClass; sym_kConst; sym_kConstructor;
   sym_kDestructor; sym_kEnd; sym_kFunction]; ACTIONS 1016 [sym_kInline];
   ACTIONS 9010 [sym_kProcedure; sym_kProperty; sym_kResourcestring; sym_kThreadvar; sym_kType;
   sym_kVar]].

(** State 2016. *)
Definition ts_parse_table_2016 : parse_row :=
  [STATE 23 [sym__ppIf]; STATE 2033 [sym_ppBlock; sym_declVar]; STATE 5435 [sym_rttiAttributes];
   STATE 2033 [aux_sym_declVars_repeat1]; STATE 5436 [aux_sym_declVar_repeat1];
   STATE 4094 [aux_sym_rttiAttributes_repeat2]; ACTIONS 3633 [anon_sym_LBRACK];
   ACTIONS 3638 [aux_sym_ppUsesBlock_token1]; ACTIONS 3 [sym__space];
   ACTIONS 5 [sym_ppDirective]; ACTIONS 3 [sym_comment]; ACTIONS 13290 [sym_identifier];
   ACTIONS 13292 [sym_kDefault; sym_kNodefault; sym_kDispId]; ACTIONS 3631 [sym_kGeneric];
   ACTIONS 13297 [sym_kOperator]; ACTIONS 13292 [sym_kPublic; sym_kStatic; sym_kVirtual;
   sym_kAbstract; sym_kDynamic; sym_kOverride; sym_kOverload; sym_kReintroduce; sym_kStdcall;
   sym_kCdecl; sym_kCppdecl; sym_kPascal; sym_kRegister; sym_kMwpascal; sym_kMessage;
   sym_kDeprecated; sym_kExperimental; sym_kPlatform; sym_kUnimplemented; sym_kCvar; sym_kExport;
   sym_kFar; sym_kNear; sym_kSafecall; sym_kAssembler; sym_kNostackframe; sym_kInterrupt;
   sym_kNoreturn; sym_kIocheck; sym_kLocal; sym_kHardfloat; sym_kSoftfloat; sym_kMs_abi_default;
   sym_kMs_abi_cdecl; sym_kSaveregisters; sym_kSysv_abi_default; sym_kSysv_abi_cdecl;
   sym_kVectorcall; sym_kVarargs; sym_kWinapi; sym_kAlias]; ACTIONS 3631 [sym_kAsm; sym_kBegin;
   sym_kClass; sym_kConst; sym_kConstructor; sym_kDestructor; sym_kExports; sym_kFunction;
   sym_kLabel; sym_kProcedure; sym_kResourcestring; sym_kThreadvar; sym_kType; sym_kUses;
   sym_kVar]].

(** State 2017. *)
Definition ts_parse_table_2017 : parse_row :=
  [STATE 2496 [sym__procAttribute]; STATE 14551 [sym_procAttribute];
   STATE 2123 [aux_sym_declProcFwd_repeat1]; ACTIONS 13309 [anon_sym_LBRACK];
   ACTIONS 9038 [aux_sym_ppUsesBlock_token1]; ACTIONS 3 [sym__space];
   ACTIONS 5 [sym_ppDirective]; ACTIONS 3 [sym_comment]; ACTIONS 1016 [sym_kDefault;
   sym_kNodefault]; ACTIONS 11641 [sym_kDispId]; ACTIONS 9038 [sym_kGeneric; sym_kOperator;
   sym_kPublished]; ACTIONS 9051 [sym_kPublic]; ACTIONS 9038 [sym_kProtected; sym_kPrivate;
   sym_kStrict; sym_kRequired; sym_kOptional]; ACTIONS 1016 [sym_kStatic; sym_kVirtual;
   sym_kAbstract; sym_kDynamic; sym_kOverride; sym_kOverload; sym_kReintroduce; sym_kStdcall;
   sym_kCdecl; sym_kCppdecl; sym_kPascal; sym_kRegister; sym_kMwpascal];
   ACTIONS 11645 [sym_kMessage]; ACTIONS 11647 [sym_kDeprecated];
   ACTIONS 1016 [sym_kExperimental; sym_kPlatform; sym_kUnimplemented; sym_kCvar];
   ACTIONS 11649 [sym_kExport]; ACTIONS 1016 [sym_kFar; sym_kNear; sym_kSafecall; sym_kAssembler;
   sym_kNostackframe; sym_kInterrupt; sym_kNoreturn; sym_kIocheck; sym_kLocal; sym_kHardfloat;
   sym_kSoftfloat; sym_kMs_abi_default; sym_kMs_abi_cdecl; sym_kSaveregisters;
   sym_kSysv_abi_default; sym_kSysv_abi_cdecl; sym_kVectorcall; sym_kVarargs; sym_kWinapi];
   ACTIONS 11651 [sym_kAlias]; ACTIONS 9038 [sym_kCase; sym_kClass; sym_kConst; sym_kConstructor;
   sym_kDestructor; sym_kEnd; sym_kFunction]; ACTIONS 1016 [sym_kInline];
   ACTIONS 9038 [sym_kProcedure; sym_kProperty; sym_kResourcestring; sym_kThreadvar; sym_kType;
   sym_kVar]].

(** State 2018. *)
Definition ts_parse_table_2018 : parse_row :=
  [STATE 2496 [sym__procAttribute]; STATE 14551 [sym_procAttribute];
   STATE 2112 [aux_sym_declProcFwd_repeat1]; ACTIONS 13312 [anon_sym_LBRACK];
   ACTIONS 9066 [aux_sym_ppUsesBlock_token1]; ACTIONS 3 [sym__space];
   ACTIONS 5 [sym_ppDirective]; ACTIONS 3 [sym_comment]; ACTIONS 1016 [sym_kDefault;
   sym_kNodefault]; ACTIONS 11641 [sym_kDispId]; ACTIONS 9066 [sym_kGeneric; sym_kOperator;
   sym_kPublished]; ACTIONS 9079 [sym_kPublic]; ACTIONS 9066 [sym_kProtected; sym_kPrivate;
   sym_kStrict; sym_kRequired; sym_kOptional]; ACTIONS 1016 [sym_kStatic; sym_kVirtual;
   sym_kAbstract; sym_kDynamic; sym_kOverride; sym_kOverload; sym_kReintroduce; sym_kStdcall;
   sym_kCdecl; sym_kCppdecl; sym_kPascal; sym_kRegister; sym_kMwpascal];
   ACTIONS 11645 [sym_kMessage]; ACTIONS 11647 [sym_kDeprecated];
   ACTIONS 1016 [sym_kExperimental; sym_kPlatform; sym_kUnimplemented; sym_kCvar];
   ACTIONS 11649 [sym_kExport]; ACTIONS 1016 [sym_kFar; sym_kNear; sym_kSafecall; sym_kAssembler;
   sym_kNostackframe; sym_kInterrupt; sym_kNoreturn; sym_kIocheck; sym_kLocal; sym_kHardfloat;
   sym_kSoftfloat; sym_kMs_abi_default; sym_kMs_abi_cdecl; sym_kSaveregisters;
   sym_kSysv_abi_default; sym_kSysv_abi_cdecl; sym_kVectorcall; sym_kVarargs; sym_kWinapi];
   ACTIONS 11651 [sym_kAlias]; ACTIONS 9066 [sym_kCase; sym_kClass; sym_kConst; sym_kConstructor;
   sym_kDestructor; sym_kEnd; sym_kFunction]; ACTIONS 1016 [sym_kInline];
   ACTIONS 9066 [sym_kProcedure; sym_kProperty; sym_kResourcestring; sym_kThreadvar; sym_kType;
   sym_kVar]].

(** State 2019. *)
Definition ts_parse_table_2019 : parse_row :=
  [STATE 2496 [sym__procAttribute]; STATE 14551 [sym_procAttribute];
   STATE 2112 [aux_sym_declProcFwd_repeat1]; ACTIONS 13315 [anon_sym_LBRACK];
   ACTIONS 9094 [aux_sym_ppUsesBlock_token1]; ACTIONS 3 [sym__space];
   ACTIONS 5 [sym_ppDirective]; ACTIONS 3 [sym_comment]; ACTIONS 1016 [sym_kDefault;
   sym_kNodefault]; ACTIONS 11641 [sym_kDispId]; ACTIONS 9094 [sym_kGeneric; sym_kOperator;
   sym_kPublished]; ACTIONS 9107 [sym_kPublic]; ACTIONS 9094 [sym_kProtected; sym_kPrivate;
   sym_kStrict; sym_kRequired; sym_kOptional]; ACTIONS 1016 [sym_kStatic; sym_kVirtual;
   sym_kAbstract; sym_kDynamic; sym_kOverride; sym_kOverload; sym_kReintroduce; sym_kStdcall;
   sym_kCdecl; sym_kCppdecl; sym_kPascal; sym_kRegister; sym_kMwpascal];
   ACTIONS 11645 [sym_kMessage]; ACTIONS 11647 [sym_kDeprecated];
   ACTIONS 1016 [sym_kExperimental; sym_kPlatform; sym_kUnimplemented; sym_kCvar];
   ACTIONS 11649 [sym_kExport]; ACTIONS 1016 [sym_kFar; sym_kNear; sym_kSafecall; sym_kAssembler;
   sym_kNostackframe; sym_kInterrupt; sym_kNoreturn; sym_kIocheck; sym_kLocal; sym_kHardfloat;
   sym_kSoftfloat; sym_kMs_abi_default; sym_kMs_abi_cdecl; sym_kSaveregisters;
   sym_kSysv_abi_default; sym_kSysv_abi_cdecl; sym_kVectorcall; sym_kVarargs; sym_kWinapi];
   ACTIONS 11651 [sym_kAlias]; ACTIONS 9094 [sym_kCase; sym_kClass; sym_kConst; sym_kConstructor;
   sym_kDestructor; sym_kEnd; sym_kFunction]; ACTIONS 1016 [sym_kInline];
   ACTIONS 9094 [sym_kProcedure; sym_kProperty; sym_kResourcestring; sym_kThreadvar; sym_kType;
   sym_kVar]].

(** State 2020. *)
Definition ts_parse_table_2020 : parse_row :=
  [STATE 2496 [sym__procAttribute]; STATE 14551 [sym_procAttribute];
   STATE 2124 [aux_sym_declProcFwd_repeat1]; ACTIONS 13318 [anon_sym_LBRACK];
   ACTIONS 9122 [aux_sym_ppUsesBlock_token1]; ACTIONS 3 [sym__space];
   ACTIONS 5 [sym_ppDirective]; ACTIONS 3 [sym_comment]; ACTIONS 1016 [sym_kDefault;
   sym_kNodefault]; ACTIONS 11641 [sym_kDispId]; ACTIONS 9122 [sym_kGeneric; sym_kOperator;
   sym_kPublished]; ACTIONS 9135 [sym_kPublic]; ACTIONS 9122 [sym_kProtected; sym_kPrivate;
   sym_kStrict; sym_kRequired; sym_kOptional]; ACTIONS 1016 [sym_kStatic; sym_kVirtual;
   sym_kAbstract; sym_kDynamic; sym_kOverride; sym_kOverload; sym_kReintroduce; sym_kStdcall;
   sym_kCdecl; sym_kCppdecl; sym_kPascal; sym_kRegister; sym_kMwpascal];
   ACTIONS 11645 [sym_kMessage]; ACTIONS 11647 [sym_kDeprecated];
   ACTIONS 1016 [sym_kExperimental; sym_kPlatform; sym_kUnimplemented; sym_kCvar];
   ACTIONS 11649 [sym_kExport]; ACTIONS 1016 [sym_kFar; sym_kNear; sym_kSafecall; sym_kAssembler;
   sym_kNostackframe; sym_kInterrupt; sym_kNoreturn; sym_kIocheck; sym_kLocal; sym_kHardfloat;
   sym_kSoftfloat; sym_kMs_abi_default; sym_kMs_abi_cdecl; sym_kSaveregisters;
   sym_kSysv_abi_default; sym_kSysv_abi_cdecl; sym_kVectorcall; sym_kVarargs; sym_kWinapi];
   ACTIONS 11651 [sym_kAlias]; ACTIONS 9122 [sym_kCase; sym_kClass; sym_kConst; sym_kConstructor;
   sym_kDestructor; sym_kEnd; sym_kFunction]; ACTIONS 1016 [sym_kInline];
   ACTIONS 9122 [sym_kProcedure; sym_kProperty; sym_kResourcestring; sym_kThreadvar; sym_kType;
   sym_kVar]].

(** State 2021. *)
Definition ts_parse_table_2021 : parse_row :=
  [STATE 2496 [sym__procAttribute]; STATE 14551 [sym_procAttribute];
   STATE 2126 [aux_sym_declProcFwd_repeat1]; ACTIONS 13321 [anon_sym_LBRACK];
   ACTIONS 9150 [aux_sym_ppUsesBlock_token1]; ACTIONS 3 [sym__space];
   ACTIONS 5 [sym_ppDirective]; ACTIONS 3 [sym_comment]; ACTIONS 1016 [sym_kDefault;
   sym_kNodefault]; ACTIONS 11641 [sym_kDispId]; ACTIONS 9150 [sym_kGeneric; sym_kOperator;
   sym_kPublished]; ACTIONS 9163 [sym_kPublic]; ACTIONS 9150 [sym_kProtected; sym_kPrivate;
   sym_kStrict; sym_kRequired; sym_kOptional]; ACTIONS 1016 [sym_kStatic; sym_kVirtual;
   sym_kAbstract; sym_kDynamic; sym_kOverride; sym_kOverload; sym_kReintroduce; sym_kStdcall;
   sym_kCdecl; sym_kCppdecl; sym_kPascal; sym_kRegister; sym_kMwpascal];
   ACTIONS 11645 [sym_kMessage]; ACTIONS 11647 [sym_kDeprecated];
   ACTIONS 1016 [sym_kExperimental; sym_kPlatform; sym_kUnimplemented; sym_kCvar];
   ACTIONS 11649 [sym_kExport]; ACTIONS 1016 [sym_kFar; sym_kNear; sym_kSafecall; sym_kAssembler;
   sym_kNostackframe; sym_kInterrupt; sym_kNoreturn; sym_kIocheck; sym_kLocal; sym_kHardfloat;
   sym_kSoftfloat; sym_kMs_abi_default; sym_kMs_abi_cdecl; sym_kSaveregisters;
   sym_kSysv_abi_default; sym_kSysv_abi_cdecl; sym_kVectorcall; sym_kVarargs; sym_kWinapi];
   ACTIONS 11651 [sym_kAlias]; ACTIONS 9150 [sym_kCase; sym_kClass; sym_kConst; sym_kConstructor;
   sym_kDestructor; sym_kEnd; sym_kFunction]; ACTIONS 1016 [sym_kInline];
   ACTIONS 9150 [sym_kProcedure; sym_kProperty; sym_kResourcestring; sym_kThreadvar; sym_kType;
   sym_kVar]].

(** State 2022. *)
Definition ts_parse_table_2022 : parse_row :=
  [STATE 2496 [sym__procAttribute]; STATE 14551 [sym_procAttribute];
   STATE 2112 [aux_sym_declProcFwd_repeat1]; ACTIONS 13324 [anon_sym_LBRACK];
   ACTIONS 9178 [aux_sym_ppUsesBlock_token1]; ACTIONS 3 [sym__space];
   ACTIONS 5 [sym_ppDirective]; ACTIONS 3 [sym_comment]; ACTIONS 1016 [sym_kDefault;
   sym_kNodefault]; ACTIONS 11641 [sym_kDispId]; ACTIONS 9178 [sym_kGeneric; sym_kOperator;
   sym_kPublished]; ACTIONS 9191 [sym_kPublic]; ACTIONS 9178 [sym_kProtected; sym_kPrivate;
   sym_kStrict; sym_kRequired; sym_kOptional]; ACTIONS 1016 [sym_kStatic; sym_kVirtual;
   sym_kAbstract; sym_kDynamic; sym_kOverride; sym_kOverload; sym_kReintroduce; sym_kStdcall;
   sym_kCdecl; sym_kCppdecl; sym_kPascal; sym_kRegister; sym_kMwpascal];
   ACTIONS 11645 [sym_kMessage]; ACTIONS 11647 [sym_kDeprecated];
   ACTIONS 1016 [sym_kExperimental; sym_kPlatform; sym_kUnimplemented; sym_kCvar];
   ACTIONS 11649 [sym_kExport]; ACTIONS 1016 [sym_kFar; sym_kNear; sym_kSafecall; sym_kAssembler;
   sym_kNostackframe; sym_kInterrupt; sym_kNoreturn; sym_kIocheck; sym_kLocal; sym_kHardfloat;
   sym_kSoftfloat; sym_kMs_abi_default; sym_kMs_abi_cdecl; sym_kSaveregisters;
   sym_kSysv_abi_default; sym_kSysv_abi_cdecl; sym_kVectorcall; sym_kVarargs; sym_kWinapi];
   ACTIONS 11651 [sym_kAlias]; ACTIONS 9178 [sym_kCase; sym_kClass; sym_kConst; sym_kConstructor;
   sym_kDestructor; sym_kEnd; sym_kFunction]; ACTIONS 1016 [sym_kInline];
   ACTIONS 9178 [sym_kProcedure; sym_kProperty; sym_kResourcestring; sym_kThreadvar; sym_kType;
   sym_kVar]].

(** State 2023. *)
Definition ts_parse_table_2023 : parse_row :=
  [STATE 2496 [sym__procAttribute]; STATE 14551 [sym_procAttribute];
   STATE 2112 [aux_sym_declProcFwd_repeat1]; ACTIONS 13327 [anon_sym_LBRACK];
   ACTIONS 9206 [aux_sym_ppUsesBlock_token1]; ACTIONS 3 [sym__space];
   ACTIONS 5 [sym_ppDirective]; ACTIONS 3 [sym_comment]; ACTIONS 1016 [sym_kDefault;
   sym_kNodefault]; ACTIONS 11641 [sym_kDispId]; ACTIONS 9206 [sym_kGeneric; sym_kOperator;
   sym_kPublished]; ACTIONS 9219 [sym_kPublic]; ACTIONS 9206 [sym_kProtected; sym_kPrivate;
   sym_kStrict; sym_kRequired; sym_kOptional]; ACTIONS 1016 [sym_kStatic; sym_kVirtual;
   sym_kAbstract; sym_kDynamic; sym_kOverride; sym_kOverload; sym_kReintroduce; sym_kStdcall;
   sym_kCdecl; sym_kCppdecl; sym_kPascal; sym_kRegister; sym_kMwpascal];
   ACTIONS 11645 [sym_kMessage]; ACTIONS 11647 [sym_kDeprecated];
   ACTIONS 1016 [sym_kExperimental; sym_kPlatform; sym_kUnimplemented; sym_kCvar];
   ACTIONS 11649 [sym_kExport]; ACTIONS 1016 [sym_kFar; sym_kNear; sym_kSafecall; sym_kAssembler;
   sym_kNostackframe; sym_kInterrupt; sym_kNoreturn; sym_kIocheck; sym_kLocal; sym_kHardfloat;
   sym_kSoftfloat; sym_kMs_abi_default; sym_kMs_abi_cdecl; sym_kSaveregisters;
   sym_kSysv_abi_default; sym_kSysv_abi_cdecl; sym_kVectorcall; sym_kVarargs; sym_kWinapi];
   ACTIONS 11651 [sym_kAlias]; ACTIONS 9206 [sym_kCase; sym_kClass; sym_kConst; sym_kConstructor;
   sym_kDestructor; sym_kEnd; sym_kFunction]; ACTIONS 1016 [sym_kInline];
   ACTIONS 9206 [sym_kProcedure; sym_kProperty; sym_kResourcestring; sym_kThreadvar; sym_kType;
   sym_kVar]].

(** State 2024. *)
Definition ts_parse_table_2024 : parse_row :=
  [STATE 2496 [sym__procAttribute]; STATE 14551 [sym_procAttribute];
   STATE 2133 [aux_sym_declProcFwd_repeat1]; ACTIONS 13330 [anon_sym_LBRACK];
   ACTIONS 9234 [aux_sym_ppUsesBlock_token1]; ACTIONS 3 [sym__space];
   ACTIONS 5 [sym_ppDirective]; ACTIONS 3 [sym_comment]; ACTIONS 1016 [sym_kDefault;
   sym_kNodefault]; ACTIONS 11641 [sym_kDispId]; ACTIONS 9234 [sym_kGeneric; sym_kOperator;
   sym_kPublished]; ACTIONS 9247 [sym_kPublic]; ACTIONS 9234 [sym_kProtected; sym_kPrivate;
   sym_kStrict; sym_kRequired; sym_kOptional]; ACTIONS 1016 [sym_kStatic; sym_kVirtual;
   sym_kAbstract; sym_kDynamic; sym_kOverride; sym_kOverload; sym_kReintroduce; sym_kStdcall;
   sym_kCdecl; sym_kCppdecl; sym_kPascal; sym_kRegister; sym_kMwpascal];
   ACTIONS 11645 [sym_kMessage]; ACTIONS 11647 [sym_kDeprecated];
   ACTIONS 1016 [sym_kExperimental; sym_kPlatform; sym_kUnimplemented; sym_kCvar];
   ACTIONS 11649 [sym_kExport]; ACTIONS 1016 [sym_kFar; sym_kNear; sym_kSafecall; sym_kAssembler;
   sym_kNostackframe; sym_kInterrupt; sym_kNoreturn; sym_kIocheck; sym_kLocal; sym_kHardfloat;
   sym_kSoftfloat; sym_kMs_abi_default; sym_kMs_abi_cdecl; sym_kSaveregisters;
   sym_kSysv_abi_default; sym_kSysv_abi_cdecl; sym_kVectorcall; sym_kVarargs; sym_kWinapi];
   ACTIONS 11651 [sym_kAlias]; ACTIONS 9234 [sym_kCase; sym_kClass; sym_kConst; sym_kConstructor;
   sym_kDestructor; sym_kEnd; sym_kFunction]; ACTIONS 1016 [sym_kInline];
   ACTIONS 9234 [sym_kProcedure; sym_kProperty; sym_kResourcestring; sym_kThreadvar; sym_kType;
   sym_kVar]].

(** State 2025. *)
Definition ts_parse_table_2025 : parse_row :=
  [STATE 2496 [sym__procAttribute]; STATE 14551 [sym_procAttribute];
   STATE 2135 [aux_sym_declProcFwd_repeat1]; ACTIONS 13333 [anon_sym_LBRACK];
   ACTIONS 9262 [aux_sym_ppUsesBlock_token1]; ACTIONS 3 [sym__space];
   ACTIONS 5 [sym_ppDirective]; ACTIONS 3 [sym_comment]; ACTIONS 1016 [sym_kDefault;
   sym_kNodefault]; ACTIONS 11641 [sym_kDispId]; ACTIONS 9262 [sym_kGeneric; sym_kOperator;
   sym_kPublished]; ACTIONS 9275 [sym_kPublic]; ACTIONS 9262 [sym_kProtected; sym_kPrivate;
   sym_kStrict; sym_kRequired; sym_kOptional]; ACTIONS 1016 [sym_kStatic; sym_kVirtual;
   sym_kAbstract; sym_kDynamic; sym_kOverride; sym_kOverload; sym_kReintroduce; sym_kStdcall;
   sym_kCdecl; sym_kCppdecl; sym_kPascal; sym_kRegister; sym_kMwpascal];
   ACTIONS 11645 [sym_kMessage]; ACTIONS 11647 [sym_kDeprecated];
   ACTIONS 1016 [sym_kExperimental; sym_kPlatform; sym_kUnimplemented; sym_kCvar];
   ACTIONS 11649 [sym_kExport]; ACTIONS 1016 [sym_kFar; sym_kNear; sym_kSafecall; sym_kAssembler;
   sym_kNostackframe; sym_kInterrupt; sym_kNoreturn; sym_kIocheck; sym_kLocal; sym_kHardfloat;
   sym_kSoftfloat; sym_kMs_abi_default; sym_kMs_abi_cdecl; sym_kSaveregisters;
   sym_kSysv_abi_default; sym_kSysv_abi_cdecl; sym_kVectorcall; sym_kVarargs; sym_kWinapi];
   ACTIONS 11651 [sym_kAlias]; ACTIONS 9262 [sym_kCase; sym_kClass; sym_kConst; sym_kConstructor;
   sym_kDestructor; sym_kEnd; sym_kFunction]; ACTIONS 1016 [sym_kInline];
   ACTIONS 9262 [sym_kProcedure; sym_kProperty; sym_kResourcestring; sym_kThreadvar; sym_kType;
   sym_kVar]].

(** State 2026. *)
Definition ts_parse_table_2026 : parse_row :=
  [STATE 2496 [sym__procAttribute]; STATE 14551 [sym_procAttribute];
   STATE 2106 [aux_sym_declProcFwd_repeat1]; ACTIONS 13336 [anon_sym_LBRACK];
   ACTIONS 8222 [aux_sym_ppUsesBlock_token1]; ACTIONS 3 [sym__space];
   ACTIONS 5 [sym_ppDirective]; ACTIONS 3 [sym_comment]; ACTIONS 1016 [sym_kDefault;
   sym_kNodefault]; ACTIONS 11641 [sym_kDispId]; ACTIONS 8222 [sym_kGeneric; sym_kOperator;
   sym_kPublished]; ACTIONS 8235 [sym_kPublic]; ACTIONS 8222 [sym_kProtected; sym_kPrivate;
   sym_kStrict; sym_kRequired; sym_kOptional]; ACTIONS 1016 [sym_kStatic; sym_kVirtual;
   sym_kAbstract; sym_kDynamic; sym_kOverride; sym_kOverload; sym_kReintroduce; sym_kStdcall;
   sym_kCdecl; sym_kCppdecl; sym_kPascal; sym_kRegister; sym_kMwpascal];
   ACTIONS 11645 [sym_kMessage]; ACTIONS 11647 [sym_kDeprecated];
   ACTIONS 1016 [sym_kExperimental; sym_kPlatform; sym_kUnimplemented; sym_kCvar];
   ACTIONS 11649 [sym_kExport]; ACTIONS 1016 [sym_kFar; sym_kNear; sym_kSafecall; sym_kAssembler;
   sym_kNostackframe; sym_kInterrupt; sym_kNoreturn; sym_kIocheck; sym_kLocal; sym_kHardfloat;
   sym_kSoftfloat; sym_kMs_abi_default; sym_kMs_abi_cdecl; sym_kSaveregisters;
   sym_kSysv_abi_default; sym_kSysv_abi_cdecl; sym_kVectorcall; sym_kVarargs; sym_kWinapi];
   ACTIONS 11651 [sym_kAlias]; ACTIONS 8222 [sym_kCase; sym_kClass; sym_kConst; sym_kConstructor;
   sym_kDestructor; sym_kEnd; sym_kFunction]; ACTIONS 1016 [sym_kInline];
   ACTIONS 8222 [sym_kProcedure; sym_kProperty; sym_kResourcestring; sym_kThreadvar; sym_kType;
   sym_kVar]].

(** State 2027. *)
Definition ts_parse_table_2027 : parse_row :=
  [STATE 13 [sym__ppIf]; STATE 2027 [sym_ppBlock; sym_declVar]; STATE 5128 [sym_rttiAttributes];
   STATE 2027 [aux_sym_declVars_repeat1]; STATE 5213 [aux_sym_declVar_repeat1];
   STATE 4094 [aux_sym_rttiAttributes_repeat2]; ACTIONS 3693 [ts_builtin_sym_end];
   ACTIONS 3695 [anon_sym_LBRACK]; ACTIONS 3700 [aux_sym_ppUsesBlock_token1];
   ACTIONS 3 [sym__space]; ACTIONS 5 [sym_ppDirective]; ACTIONS 3 [sym_comment];
   ACTIONS 13339 [sym_identifier]; ACTIONS 13342 [sym_kDefault; sym_kNodefault; sym_kDispId];
   ACTIONS 3693 [sym_kGeneric]; ACTIONS 13342 [sym_kOperator; sym_kPublic; sym_kStatic;
   sym_kVirtual; sym_kAbstract; sym_kDynamic; sym_kOverride; sym_kOverload; sym_kReintroduce;
   sym_kStdcall; sym_kCdecl; sym_kCppdecl; sym_kPascal; sym_kRegister; sym_kMwpascal;
   sym_kMessage; sym_kDeprecated; sym_kExperimental; sym_kPlatform; sym_kUnimplemented;
   sym_kCvar; sym_kExport; sym_kFar; sym_kNear; sym_kSafecall; sym_kAssembler; sym_kNostackframe;
   sym_kInterrupt; sym_kNoreturn; sym_kIocheck; sym_kLocal; sym_kHardfloat; sym_kSoftfloat;
   sym_kMs_abi_default; sym_kMs_abi_cdecl; sym_kSaveregisters; sym_kSysv_abi_default;
   sym_kSysv_abi_cdecl; sym_kVectorcall; sym_kVarargs; sym_kWinapi; sym_kAlias];
   ACTIONS 3693 [sym_kBegin; sym_kClass; sym_kConst; sym_kConstructor; sym_kDestructor;
   sym_kExports; sym_kFunction; sym_kLabel; sym_kProcedure; sym_kResourcestring; sym_kThreadvar;
   sym_kType; sym_kUses; sym_kVar]].

(** State 2028. *)
Definition ts_parse_table_2028 : parse_row :=
  [STATE 5165 [sym__exprIsNot]; STATE 6354 [sym__visibility];
   STATE 6150 [aux_sym__classDeclarations]; STATE 2 [sym__ppIf]; STATE 9779 [sym_ppBlock];
   STATE 6150 [sym_declTypes; sym_declVars; sym_declConsts; sym_declProc];
   STATE 15097 [sym__declClass]; STATE 10490 [sym_declSection; sym_ppDeclSection];
   STATE 5685 [aux_sym__declFields; sym_declField]; STATE 6150 [sym_declProp];
   STATE 14434 [sym_declVariant]; STATE 10247 [sym__declProc]; STATE 9835 [sym__declOperator];
   STATE 10617 [sym_rttiAttributes]; STATE 13987 [aux_sym_genericArg_repeat1];
   STATE 10490 [aux_sym__declClass_repeat1]; STATE 10730 [aux_sym_rttiAttributes_repeat2];
   ACTIONS 13345 [anon_sym_SEMI]; ACTIONS 13347 [anon_sym_LBRACK];
   ACTIONS 13349 [anon_sym_LPAREN]; ACTIONS 13351 [aux_sym_ppUsesBlock_token1];
   ACTIONS 13353 [sym_kLt]; ACTIONS 13355 [sym_kEq; sym_kNeq]; ACTIONS 13353 [sym_kGt];
   ACTIONS 13355 [sym_kLte; sym_kGte]; ACTIONS 13357 [sym_kAdd; sym_kSub];
   ACTIONS 13359 [sym_kMul]; ACTIONS 13361 [sym_kFdiv]; ACTIONS 13363 [sym_kHat];
   ACTIONS 3 [sym__space]; ACTIONS 5 [sym_ppDirective]; ACTIONS 3 [sym_comment];
   ACTIONS 13365 [sym_identifier]; ACTIONS 13367 [sym_kGeneric]; ACTIONS 13369 [sym_kOperator];
   ACTIONS 13371 [sym_kPublished; sym_kPublic; sym_kProtected; sym_kPrivate];
   ACTIONS 13373 [sym_kStrict]; ACTIONS 13371 [sym_kRequired; sym_kOptional];
   ACTIONS 13359 [sym_kAnd]; ACTIONS 13375 [sym_kAs]; ACTIONS 13377 [sym_kCase];
   ACTIONS 13379 [sym_kClass]; ACTIONS 13381 [sym_kConst]; ACTIONS 13383 [sym_kConstructor;
   sym_kDestructor]; ACTIONS 13359 [sym_kDiv]; ACTIONS 13385 [sym_kEnd];
   ACTIONS 13383 [sym_kFunction]; ACTIONS 13355 [sym_kIn]; ACTIONS 13387 [sym_kIs];
   ACTIONS 13359 [sym_kMod]; ACTIONS 13389 [sym_kNot]; ACTIONS 13357 [sym_kOr];
   ACTIONS 13383 [sym_kProcedure]; ACTIONS 13391 [sym_kProperty];
   ACTIONS 13381 [sym_kResourcestring]; ACTIONS 13359 [sym_kShl; sym_kShr];
   ACTIONS 13393 [sym_kThreadvar]; ACTIONS 13395 [sym_kType]; ACTIONS 13393 [sym_kVar];
   ACTIONS 13357 [sym_kXor]].

(** State 2029. *)
Definition ts_parse_table_2029 : parse_row :=
  [STATE 2856 [sym__ppIf]; STATE 2638 [sym__procAttributeNoExt];
   STATE 2639 [sym__procAttributesPp]; STATE 15800 [sym_procAttribute];
   STATE 2114 [aux_sym__declProc_repeat1]; ACTIONS 13397 [anon_sym_LBRACK];
   ACTIONS 1439 [aux_sym_ppUsesBlock_token1]; ACTIONS 3 [sym__space];
   ACTIONS 5 [sym_ppDirective]; ACTIONS 3 [sym_comment]; ACTIONS 1016 [sym_kDefault;
   sym_kNodefault]; ACTIONS 11641 [sym_kDispId]; ACTIONS 1432 [sym_kGeneric; sym_kOperator];
   ACTIONS 11643 [sym_kPublic]; ACTIONS 1432 [sym_kForward]; ACTIONS 1016 [sym_kStatic;
   sym_kVirtual; sym_kAbstract; sym_kDynamic; sym_kOverride; sym_kOverload; sym_kReintroduce;
   sym_kStdcall; sym_kCdecl; sym_kCppdecl; sym_kPascal; sym_kRegister; sym_kMwpascal];
   ACTIONS 1432 [sym_kExternal]; ACTIONS 11645 [sym_kMessage]; ACTIONS 11647 [sym_kDeprecated];
   ACTIONS 1016 [sym_kExperimental; sym_kPlatform; sym_kUnimplemented; sym_kCvar];
   ACTIONS 11649 [sym_kExport]; ACTIONS 1016 [sym_kFar; sym_kNear; sym_kSafecall; sym_kAssembler;
   sym_kNostackframe; sym_kInterrupt; sym_kNoreturn; sym_kIocheck; sym_kLocal; sym_kHardfloat;
   sym_kSoftfloat; sym_kMs_abi_default; sym_kMs_abi_cdecl; sym_kSaveregisters;
   sym_kSysv_abi_default; sym_kSysv_abi_cdecl; sym_kVectorcall; sym_kVarargs; sym_kWinapi];
   ACTIONS 11651 [sym_kAlias]; ACTIONS 1432 [sym_kAsm; sym_kBegin; sym_kClass; sym_kConst;
   sym_kConstructor; sym_kDestructor; sym_kExports; sym_kFunction]; ACTIONS 1016 [sym_kInline];
   ACTIONS 1432 [sym_kLabel; sym_kProcedure; sym_kResourcestring; sym_kThreadvar; sym_kType;
   sym_kUses; sym_kVar]].

(** State 2030. *)
Definition ts_parse_table_2030 : parse_row :=
  [STATE 2856 [sym__ppIf]; STATE 2638 [sym__procAttributeNoExt];
   STATE 2639 [sym__procAttributesPp]; STATE 15800 [sym_procAttribute];
   STATE 2043 [aux_sym__declProc_repeat1]; ACTIONS 13400 [anon_sym_LBRACK];
   ACTIONS 1484 [aux_sym_ppUsesBlock_token1]; ACTIONS 3 [sym__space];
   ACTIONS 5 [sym_ppDirective]; ACTIONS 3 [sym_comment]; ACTIONS 1016 [sym_kDefault;
   sym_kNodefault]; ACTIONS 11641 [sym_kDispId]; ACTIONS 1477 [sym_kGeneric; sym_kOperator];
   ACTIONS 11643 [sym_kPublic]; ACTIONS 1477 [sym_kForward]; ACTIONS 1016 [sym_kStatic;
   sym_kVirtual; sym_kAbstract; sym_kDynamic; sym_kOverride; sym_kOverload; sym_kReintroduce;
   sym_kStdcall; sym_kCdecl; sym_kCppdecl; sym_kPascal; sym_kRegister; sym_kMwpascal];
   ACTIONS 1477 [sym_kExternal]; ACTIONS 11645 [sym_kMessage]; ACTIONS 11647 [sym_kDeprecated];
   ACTIONS 1016 [sym_kExperimental; sym_kPlatform; sym_kUnimplemented; sym_kCvar];
   ACTIONS 11649 [sym_kExport]; ACTIONS 1016 [sym_kFar; sym_kNear; sym_kSafecall; sym_kAssembler;
   sym_kNostackframe; sym_kInterrupt; sym_kNoreturn; sym_kIocheck; sym_kLocal; sym_kHardfloat;
   sym_kSoftfloat; sym_kMs_abi_default; sym_kMs_abi_cdecl; sym_kSaveregisters;
   sym_kSysv_abi_default; sym_kSysv_abi_cdecl; sym_kVectorcall; sym_kVarargs; sym_kWinapi];
   ACTIONS 11651 [sym_kAlias]; ACTIONS 1477 [sym_kAsm; sym_kBegin; sym_kClass; sym_kConst;
   sym_kConstructor; sym_kDestructor; sym_kExports; sym_kFunction]; ACTIONS 1016 [sym_kInline];
   ACTIONS 1477 [sym_kLabel; sym_kProcedure; sym_kResourcestring; sym_kThreadvar; sym_kType;
   sym_kUses; sym_kVar]].

(** State 2031. *)
Definition ts_parse_table_2031 : parse_row :=
  [STATE 2856 [sym__ppIf]; STATE 2638 [sym__procAttributeNoExt];
   STATE 2639 [sym__procAttributesPp]; STATE 15800 [sym_procAttribute];
   STATE 2046 [aux_sym__declProc_repeat1]; ACTIONS 13403 [anon_sym_LBRACK];
   ACTIONS 1515 [aux_sym_ppUsesBlock_token1]; ACTIONS 3 [sym__space];
   ACTIONS 5 [sym_ppDirective]; ACTIONS 3 [sym_comment]; ACTIONS 1016 [sym_kDefault;
   sym_kNodefault]; ACTIONS 11641 [sym_kDispId]; ACTIONS 1508 [sym_kGeneric; sym_kOperator];
   ACTIONS 11643 [sym_kPublic]; ACTIONS 1508 [sym_kForward]; ACTIONS 1016 [sym_kStatic;
   sym_kVirtual; sym_kAbstract; sym_kDynamic; sym_kOverride; sym_kOverload; sym_kReintroduce;
   sym_kStdcall; sym_kCdecl; sym_kCppdecl; sym_kPascal; sym_kRegister; sym_kMwpascal];
   ACTIONS 1508 [sym_kExternal]; ACTIONS 11645 [sym_kMessage]; ACTIONS 11647 [sym_kDeprecated];
   ACTIONS 1016 [sym_kExperimental; sym_kPlatform; sym_kUnimplemented; sym_kCvar];
   ACTIONS 11649 [sym_kExport]; ACTIONS 1016 [sym_kFar; sym_kNear; sym_kSafecall; sym_kAssembler;
   sym_kNostackframe; sym_kInterrupt; sym_kNoreturn; sym_kIocheck; sym_kLocal; sym_kHardfloat;
   sym_kSoftfloat; sym_kMs_abi_default; sym_kMs_abi_cdecl; sym_kSaveregisters;
   sym_kSysv_abi_default; sym_kSysv_abi_cdecl; sym_kVectorcall; sym_kVarargs; sym_kWinapi];
   ACTIONS 11651 [sym_kAlias]; ACTIONS 1508 [sym_kAsm; sym_kBegin; sym_kClass; sym_kConst;
   sym_kConstructor; sym_kDestructor; sym_kExports; sym_kFunction]; ACTIONS 1016 [sym_kInline];
   ACTIONS 1508 [sym_kLabel; sym_kProcedure; sym_kResourcestring; sym_kThreadvar; sym_kType;
   sym_kUses; sym_kVar]].

(** State 2032. *)
Definition ts_parse_table_2032 : parse_row :=
  [STATE 23 [sym__ppIf]; STATE 2033 [sym_ppBlock; sym_declVar]; STATE 5435 [sym_rttiAttributes];
   STATE 2033 [aux_sym_declVars_repeat1]; STATE 5436 [aux_sym_declVar_repeat1];
   STATE 4094 [aux_sym_rttiAttributes_repeat2]; ACTIONS 3671 [anon_sym_LBRACK];
   ACTIONS 3676 [aux_sym_ppUsesBlock_token1]; ACTIONS 3 [sym__space];
   ACTIONS 5 [sym_ppDirective]; ACTIONS 3 [sym_comment]; ACTIONS 13290 [sym_identifier];
   ACTIONS 13292 [sym_kDefault; sym_kNodefault; sym_kDispId]; ACTIONS 3669 [sym_kGeneric];
   ACTIONS 13406 [sym_kOperator]; ACTIONS 13292 [sym_kPublic; sym_kStatic; sym_kVirtual;
   sym_kAbstract; sym_kDynamic; sym_kOverride; sym_kOverload; sym_kReintroduce; sym_kStdcall;
   sym_kCdecl; sym_kCppdecl; sym_kPascal; sym_kRegister; sym_kMwpascal; sym_kMessage;
   sym_kDeprecated; sym_kExperimental; sym_kPlatform; sym_kUnimplemented; sym_kCvar; sym_kExport;
   sym_kFar; sym_kNear; sym_kSafecall; sym_kAssembler; sym_kNostackframe; sym_kInterrupt;
   sym_kNoreturn; sym_kIocheck; sym_kLocal; sym_kHardfloat; sym_kSoftfloat; sym_kMs_abi_default;
   sym_kMs_abi_cdecl; sym_kSaveregisters; sym_kSysv_abi_default; sym_kSysv_abi_cdecl;
   sym_kVectorcall; sym_kVarargs; sym_kWinapi; sym_kAlias]; ACTIONS 3669 [sym_kAsm; sym_kBegin;
   sym_kClass; sym_kConst; sym_kConstructor; sym_kDestructor; sym_kExports; sym_kFunction;
   sym_kLabel; sym_kProcedure; sym_kResourcestring; sym_kThreadvar; sym_kType; sym_kUses;
   sym_kVar]].

(** State 2033. *)
Definition ts_parse_table_2033 : parse_row :=
  [STATE 23 [sym__ppIf]; STATE 2033 [sym_ppBlock; sym_declVar]; STATE 5435 [sym_rttiAttributes];
   STATE 2033 [aux_sym_declVars_repeat1]; STATE 5436 [aux_sym_declVar_repeat1];
   STATE 4094 [aux_sym_rttiAttributes_repeat2]; ACTIONS 3695 [anon_sym_LBRACK];
   ACTIONS 3700 [aux_sym_ppUsesBlock_token1]; ACTIONS 3 [sym__space];
   ACTIONS 5 [sym_ppDirective]; ACTIONS 3 [sym_comment]; ACTIONS 13409 [sym_identifier];
   ACTIONS 13412 [sym_kDefault; sym_kNodefault; sym_kDispId]; ACTIONS 3693 [sym_kGeneric];
   ACTIONS 13412 [sym_kOperator; sym_kPublic; sym_kStatic; sym_kVirtual; sym_kAbstract;
   sym_kDynamic; sym_kOverride; sym_kOverload; sym_kReintroduce; sym_kStdcall; sym_kCdecl;
   sym_kCppdecl; sym_kPascal; sym_kRegister; sym_kMwpascal; sym_kMessage; sym_kDeprecated;
   sym_kExperimental; sym_kPlatform; sym_kUnimplemented; sym_kCvar; sym_kExport; sym_kFar;
   sym_kNear; sym_kSafecall; sym_kAssembler; sym_kNostackframe; sym_kInterrupt; sym_kNoreturn;
   sym_kIocheck; sym_kLocal; sym_kHardfloat; sym_kSoftfloat; sym_kMs_abi_default;
   sym_kMs_abi_cdecl; sym_kSaveregisters; sym_kSysv_abi_default; sym_kSysv_abi_cdecl;
   sym_kVectorcall; sym_kVarargs; sym_kWinapi; sym_kAlias]; ACTIONS 3693 [sym_kAsm; sym_kBegin;
   sym_kClass; sym_kConst; sym_kConstructor; sym_kDestructor; sym_kExports; sym_kFunction;
   sym_kLabel; sym_kProcedure; sym_kResourcestring; sym_kThreadvar; sym_kType; sym_kUses;
   sym_kVar]].

(** State 2034. *)
Definition ts_parse_table_2034 : parse_row :=
  [STATE 5165 [sym__exprIsNot]; STATE 6354 [sym__visibility];
   STATE 6150 [aux_sym__classDeclarations]; STATE 2 [sym__ppIf]; STATE 9779 [sym_ppBlock];
   STATE 6150 [sym_declTypes; sym_declVars; sym_declConsts; sym_declProc];
   STATE 14379 [sym__declClass]; STATE 10490 [sym_declSection; sym_ppDeclSection];
   STATE 5685 [aux_sym__declFields; sym_declField]; STATE 6150 [sym_declProp];
   STATE 14434 [sym_declVariant]; STATE 10247 [sym__declProc]; STATE 9835 [sym__declOperator];
   STATE 10617 [sym_rttiAttributes]; STATE 13987 [aux_sym_genericArg_repeat1];
   STATE 10490 [aux_sym__declClass_repeat1]; STATE 10730 [aux_sym_rttiAttributes_repeat2];
   ACTIONS 13415 [anon_sym_SEMI]; ACTIONS 13347 [anon_sym_LBRACK];
   ACTIONS 13417 [anon_sym_LPAREN]; ACTIONS 13351 [aux_sym_ppUsesBlock_token1];
   ACTIONS 13353 [sym_kLt]; ACTIONS 13355 [sym_kEq; sym_kNeq]; ACTIONS 13353 [sym_kGt];
   ACTIONS 13355 [sym_kLte; sym_kGte]; ACTIONS 13357 [sym_kAdd; sym_kSub];
   ACTIONS 13359 [sym_kMul]; ACTIONS 13361 [sym_kFdiv]; ACTIONS 13363 [sym_kHat];
   ACTIONS 3 [sym__space]; ACTIONS 5 [sym_ppDirective]; ACTIONS 3 [sym_comment];
   ACTIONS 13365 [sym_identifier]; ACTIONS 13367 [sym_kGeneric]; ACTIONS 13369 [sym_kOperator];
   ACTIONS 13371 [sym_kPublished; sym_kPublic; sym_kProtected; sym_kPrivate];
   ACTIONS 13373 [sym_kStrict]; ACTIONS 13371 [sym_kRequired; sym_kOptional];
   ACTIONS 13359 [sym_kAnd]; ACTIONS 13375 [sym_kAs]; ACTIONS 13377 [sym_kCase];
   ACTIONS 13379 [sym_kClass]; ACTIONS 13381 [sym_kConst]; ACTIONS 13383 [sym_kConstructor;
   sym_kDestructor]; ACTIONS 13359 [sym_kDiv]; ACTIONS 13419 [sym_kEnd];
   ACTIONS 13383 [sym_kFunction]; ACTIONS 13355 [sym_kIn]; ACTIONS 13387 [sym_kIs];
   ACTIONS 13359 [sym_kMod]; ACTIONS 13389 [sym_kNot]; ACTIONS 13357 [sym_kOr];
   ACTIONS 13383 [sym_kProcedure]; ACTIONS 13391 [sym_kProperty];
   ACTIONS 13381 [sym_kResourcestring]; ACTIONS 13359 [sym_kShl; sym_kShr];
   ACTIONS 13393 [sym_kThreadvar]; ACTIONS 13395 [sym_kType]; ACTIONS 13393 [sym_kVar];
   ACTIONS 13357 [sym_kXor]].

(** State 2035. *)
Definition ts_parse_table_2035 : parse_row :=
  [STATE 2501 [sym__procAttribute]; STATE 15613 [sym_procAttribute];
   STATE 2038 [aux_sym_declProcFwd_repeat1]; ACTIONS 13421 [anon_sym_LBRACK];
   ACTIONS 8954 [aux_sym_ppUsesBlock_token1]; ACTIONS 3 [sym__space];
   ACTIONS 5 [sym_ppDirective]; ACTIONS 3 [sym_comment]; ACTIONS 1016 [sym_kDefault;
   sym_kNodefault]; ACTIONS 11641 [sym_kDispId]; ACTIONS 8954 [sym_kGeneric; sym_kOperator];
   ACTIONS 11643 [sym_kPublic]; ACTIONS 1016 [sym_kStatic; sym_kVirtual; sym_kAbstract;
   sym_kDynamic; sym_kOverride; sym_kOverload; sym_kReintroduce; sym_kStdcall; sym_kCdecl;
   sym_kCppdecl; sym_kPascal; sym_kRegister; sym_kMwpascal]; ACTIONS 11645 [sym_kMessage];
   ACTIONS 11647 [sym_kDeprecated]; ACTIONS 1016 [sym_kExperimental; sym_kPlatform;
   sym_kUnimplemented; sym_kCvar]; ACTIONS 11649 [sym_kExport]; ACTIONS 1016 [sym_kFar;
   sym_kNear; sym_kSafecall; sym_kAssembler; sym_kNostackframe; sym_kInterrupt; sym_kNoreturn;
   sym_kIocheck; sym_kLocal; sym_kHardfloat; sym_kSoftfloat; sym_kMs_abi_default;
   sym_kMs_abi_cdecl; sym_kSaveregisters; sym_kSysv_abi_default; sym_kSysv_abi_cdecl;
   sym_kVectorcall; sym_kVarargs; sym_kWinapi]; ACTIONS 11651 [sym_kAlias];
   ACTIONS 8954 [sym_kClass; sym_kConst; sym_kConstructor; sym_kDestructor; sym_kEnd;
   sym_kExports; sym_kFinalization; sym_kFunction; sym_kImplementation; sym_kInitialization];
   ACTIONS 1016 [sym_kInline]; ACTIONS 8954 [sym_kInterface; sym_kLabel; sym_kProcedure;
   sym_kProperty; sym_kResourcestring; sym_kThreadvar; sym_kType; sym_kUses; sym_kVar]].

(** State 2036. *)
Definition ts_parse_table_2036 : parse_row :=
  [STATE 13 [sym__ppIf]; STATE 2027 [sym_ppBlock; sym_declVar]; STATE 5128 [sym_rttiAttributes];
   STATE 2027 [aux_sym_declVars_repeat1]; STATE 5213 [aux_sym_declVar_repeat1];
   STATE 4094 [aux_sym_rttiAttributes_repeat2]; ACTIONS 3669 [ts_builtin_sym_end];
   ACTIONS 3671 [anon_sym_LBRACK]; ACTIONS 3676 [aux_sym_ppUsesBlock_token1];
   ACTIONS 3 [sym__space]; ACTIONS 5 [sym_ppDirective]; ACTIONS 3 [sym_comment];
   ACTIONS 13232 [sym_identifier]; ACTIONS 13234 [sym_kDefault; sym_kNodefault; sym_kDispId];
   ACTIONS 3669 [sym_kGeneric]; ACTIONS 13424 [sym_kOperator]; ACTIONS 13234 [sym_kPublic;
   sym_kStatic; sym_kVirtual; sym_kAbstract; sym_kDynamic; sym_kOverride; sym_kOverload;
   sym_kReintroduce; sym_kStdcall; sym_kCdecl; sym_kCppdecl; sym_kPascal; sym_kRegister;
   sym_kMwpascal; sym_kMessage; sym_kDeprecated; sym_kExperimental; sym_kPlatform;
   sym_kUnimplemented; sym_kCvar; sym_kExport; sym_kFar; sym_kNear; sym_kSafecall;
   sym_kAssembler; sym_kNostackframe; sym_kInterrupt; sym_kNoreturn; sym_kIocheck; sym_kLocal;
   sym_kHardfloat; sym_kSoftfloat; sym_kMs_abi_default; sym_kMs_abi_cdecl; sym_kSaveregisters;
   sym_kSysv_abi_default; sym_kSysv_abi_cdecl; sym_kVectorcall; sym_kVarargs; sym_kWinapi;
   sym_kAlias]; ACTIONS 3669 [sym_kBegin; sym_kClass; sym_kConst; sym_kConstructor;
   sym_kDestructor; sym_kExports; sym_kFunction; sym_kLabel; sym_kProcedure; sym_kResourcestring;
   sym_kThreadvar; sym_kType; sym_kUses; sym_kVar]].

(** State 2037. *)
Definition ts_parse_table_2037 : parse_row :=
  [STATE 2501 [sym__procAttribute]; STATE 15613 [sym_procAttribute];
   STATE 2045 [aux_sym_declProcFwd_repeat1]; ACTIONS 13427 [anon_sym_LBRACK];
   ACTIONS 8110 [aux_sym_ppUsesBlock_token1]; ACTIONS 3 [sym__space];
   ACTIONS 5 [sym_ppDirective]; ACTIONS 3 [sym_comment]; ACTIONS 1016 [sym_kDefault;
   sym_kNodefault]; ACTIONS 11641 [sym_kDispId]; ACTIONS 8110 [sym_kGeneric; sym_kOperator];
   ACTIONS 11643 [sym_kPublic]; ACTIONS 1016 [sym_kStatic; sym_kVirtual; sym_kAbstract;
   sym_kDynamic; sym_kOverride; sym_kOverload; sym_kReintroduce; sym_kStdcall; sym_kCdecl;
   sym_kCppdecl; sym_kPascal; sym_kRegister; sym_kMwpascal]; ACTIONS 11645 [sym_kMessage];
   ACTIONS 11647 [sym_kDeprecated]; ACTIONS 1016 [sym_kExperimental; sym_kPlatform;
   sym_kUnimplemented; sym_kCvar]; ACTIONS 11649 [sym_kExport]; ACTIONS 1016 [sym_kFar;
   sym_kNear; sym_kSafecall; sym_kAssembler; sym_kNostackframe; sym_kInterrupt; sym_kNoreturn;
   sym_kIocheck; sym_kLocal; sym_kHardfloat; sym_kSoftfloat; sym_kMs_abi_default;
   sym_kMs_abi_cdecl; sym_kSaveregisters; sym_kSysv_abi_default; sym_kSysv_abi_cdecl;
   sym_kVectorcall; sym_kVarargs; sym_kWinapi]; ACTIONS 11651 [sym_kAlias];
   ACTIONS 8110 [sym_kClass; sym_kConst; sym_kConstructor; sym_kDestructor; sym_kEnd;
   sym_kExports; sym_kFinalization; sym_kFunction; sym_kImplementation; sym_kInitialization];
   ACTIONS 1016 [sym_kInline]; ACTIONS 8110 [sym_kInterface; sym_kLabel; sym_kProcedure;
   sym_kProperty; sym_kResourcestring; sym_kThreadvar; sym_kType; sym_kUses; sym_kVar]].

(** State 2038. *)
Definition ts_parse_table_2038 : parse_row :=
  [STATE 2501 [sym__procAttribute]; STATE 15613 [sym_procAttribute];
   STATE 2040 [aux_sym_declProcFwd_repeat1]; ACTIONS 13430 [anon_sym_LBRACK];
   ACTIONS 8166 [aux_sym_ppUsesBlock_token1]; ACTIONS 3 [sym__space];
   ACTIONS 5 [sym_ppDirective]; ACTIONS 3 [sym_comment]; ACTIONS 1016 [sym_kDefault;
   sym_kNodefault]; ACTIONS 11641 [sym_kDispId]; ACTIONS 8166 [sym_kGeneric; sym_kOperator];
   ACTIONS 11643 [sym_kPublic]; ACTIONS 1016 [sym_kStatic; sym_kVirtual; sym_kAbstract;
   sym_kDynamic; sym_kOverride; sym_kOverload; sym_kReintroduce; sym_kStdcall; sym_kCdecl;
   sym_kCppdecl; sym_kPascal; sym_kRegister; sym_kMwpascal]; ACTIONS 11645 [sym_kMessage];
   ACTIONS 11647 [sym_kDeprecated]; ACTIONS 1016 [sym_kExperimental; sym_kPlatform;
   sym_kUnimplemented; sym_kCvar]; ACTIONS 11649 [sym_kExport]; ACTIONS 1016 [sym_kFar;
   sym_kNear; sym_kSafecall; sym_kAssembler; sym_kNostackframe; sym_kInterrupt; sym_kNoreturn;
   sym_kIocheck; sym_kLocal; sym_kHardfloat; sym_kSoftfloat; sym_kMs_abi_default;
   sym_kMs_abi_cdecl; sym_kSaveregisters; sym_kSysv_abi_default; sym_kSysv_abi_cdecl;
   sym_kVectorcall; sym_kVarargs; sym_kWinapi]; ACTIONS 11651 [sym_kAlias];
   ACTIONS 8166 [sym_kClass; sym_kConst; sym_kConstructor; sym_kDestructor; sym_kEnd;
   sym_kExports; sym_kFinalization; sym_kFunction; sym_kImplementation; sym_kInitialization];
   ACTIONS 1016 [sym_kInline]; ACTIONS 8166 [sym_kInterface; sym_kLabel; sym_kProcedure;
   sym_kProperty; sym_kResourcestring; sym_kThreadvar; sym_kType; sym_kUses; sym_kVar]].

(** State 2039. *)
Definition ts_parse_table_2039 : parse_row :=
  [STATE 2501 [sym__procAttribute]; STATE 15613 [sym_procAttribute];
   STATE 2058 [aux_sym_declProcFwd_repeat1]; ACTIONS 13433 [anon_sym_LBRACK];
   ACTIONS 8194 [aux_sym_ppUsesBlock_token1]; ACTIONS 3 [sym__space];
   ACTIONS 5 [sym_ppDirective]; ACTIONS 3 [sym_comment]; ACTIONS 1016 [sym_kDefault;
   sym_kNodefault]; ACTIONS 11641 [sym_kDispId]; ACTIONS 8194 [sym_kGeneric; sym_kOperator];
   ACTIONS 11643 [sym_kPublic]; ACTIONS 1016 [sym_kStatic; sym_kVirtual; sym_kAbstract;
   sym_kDynamic; sym_kOverride; sym_kOverload; sym_kReintroduce; sym_kStdcall; sym_kCdecl;
   sym_kCppdecl; sym_kPascal; sym_kRegister; sym_kMwpascal]; ACTIONS 11645 [sym_kMessage];
   ACTIONS 11647 [sym_kDeprecated]; ACTIONS 1016 [sym_kExperimental; sym_kPlatform;
   sym_kUnimplemented; sym_kCvar]; ACTIONS 11649 [sym_kExport]; ACTIONS 1016 [sym_kFar;
   sym_kNear; sym_kSafecall; sym_kAssembler; sym_kNostackframe; sym_kInterrupt; sym_kNoreturn;
   sym_kIocheck; sym_kLocal; sym_kHardfloat; sym_kSoftfloat; sym_kMs_abi_default;
   sym_kMs_abi_cdecl; sym_kSaveregisters; sym_kSysv_abi_default; sym_kSysv_abi_cdecl;
   sym_kVectorcall; sym_kVarargs; sym_kWinapi]; ACTIONS 11651 [sym_kAlias];
   ACTIONS 8194 [sym_kClass; sym_kConst; sym_kConstructor; sym_kDestructor; sym_kEnd;
   sym_kExports; sym_kFinalization; sym_kFunction; sym_kImplementation; sym_kInitialization];
   ACTIONS 1016 [sym_kInline]; ACTIONS 8194 [sym_kInterface; sym_kLabel; sym_kProcedure;
   sym_kProperty; sym_kResourcestring; sym_kThreadvar; sym_kType; sym_kUses; sym_kVar]].

(** State 2040. *)
Definition ts_parse_table_2040 : parse_row :=
  [STATE 2501 [sym__procAttribute]; STATE 15613 [sym_procAttribute];
   STATE 2040 [aux_sym_declProcFwd_repeat1]; ACTIONS 13436 [anon_sym_LBRACK];
   ACTIONS 8588 [aux_sym_ppUsesBlock_token1]; ACTIONS 3 [sym__space];
   ACTIONS 5 [sym_ppDirective]; ACTIONS 3 [sym_comment]; ACTIONS 8595 [sym_kDefault;
   sym_kNodefault]; ACTIONS 8598 [sym_kDispId]; ACTIONS 8588 [sym_kGeneric; sym_kOperator];
   ACTIONS 8601 [sym_kPublic]; ACTIONS 8595 [sym_kStatic; sym_kVirtual; sym_kAbstract;
   sym_kDynamic; sym_kOverride; sym_kOverload; sym_kReintroduce; sym_kStdcall; sym_kCdecl;
   sym_kCppdecl; sym_kPascal; sym_kRegister; sym_kMwpascal]; ACTIONS 8604 [sym_kMessage];
   ACTIONS 8607 [sym_kDeprecated]; ACTIONS 8595 [sym_kExperimental; sym_kPlatform;
   sym_kUnimplemented; sym_kCvar]; ACTIONS 8610 [sym_kExport]; ACTIONS 8595 [sym_kFar; sym_kNear;
   sym_kSafecall; sym_kAssembler; sym_kNostackframe; sym_kInterrupt; sym_kNoreturn; sym_kIocheck;
   sym_kLocal; sym_kHardfloat; sym_kSoftfloat; sym_kMs_abi_default; sym_kMs_abi_cdecl;
   sym_kSaveregisters; sym_kSysv_abi_default; sym_kSysv_abi_cdecl; sym_kVectorcall; sym_kVarargs;
   sym_kWinapi]; ACTIONS 8613 [sym_kAlias]; ACTIONS 8588 [sym_kClass; sym_kConst;
   sym_kConstructor; sym_kDestructor; sym_kEnd; sym_kExports; sym_kFinalization; sym_kFunction;
   sym_kImplementation; sym_kInitialization]; ACTIONS 8595 [sym_kInline];
   ACTIONS 8588 [sym_kInterface; sym_kLabel; sym_kProcedure; sym_kProperty; sym_kResourcestring;
   sym_kThreadvar; sym_kType; sym_kUses; sym_kVar]].

(** State 2041. *)
Definition ts_parse_table_2041 : parse_row :=
  [STATE 2501 [sym__procAttribute]; STATE 15613 [sym_procAttribute];
   STATE 2064 [aux_sym_declProcFwd_repeat1]; ACTIONS 13439 [anon_sym_LBRACK];
   ACTIONS 8222 [aux_sym_ppUsesBlock_token1]; ACTIONS 3 [sym__space];
   ACTIONS 5 [sym_ppDirective]; ACTIONS 3 [sym_comment]; ACTIONS 1016 [sym_kDefault;
   sym_kNodefault]; ACTIONS 11641 [sym_kDispId]; ACTIONS 8222 [sym_kGeneric; sym_kOperator];
   ACTIONS 11643 [sym_kPublic]; ACTIONS 1016 [sym_kStatic; sym_kVirtual; sym_kAbstract;
   sym_kDynamic; sym_kOverride; sym_kOverload; sym_kReintroduce; sym_kStdcall; sym_kCdecl;
   sym_kCppdecl; sym_kPascal; sym_kRegister; sym_kMwpascal]; ACTIONS 11645 [sym_kMessage];
   ACTIONS 11647 [sym_kDeprecated]; ACTIONS 1016 [sym_kExperimental; sym_kPlatform;
   sym_kUnimplemented; sym_kCvar]; ACTIONS 11649 [sym_kExport]; ACTIONS 1016 [sym_kFar;
   sym_kNear; sym_kSafecall; sym_kAssembler; sym_kNostackframe; sym_kInterrupt; sym_kNoreturn;
   sym_kIocheck; sym_kLocal; sym_kHardfloat; sym_kSoftfloat; sym_kMs_abi_default;
   sym_kMs_abi_cdecl; sym_kSaveregisters; sym_kSysv_abi_default; sym_kSysv_abi_cdecl;
   sym_kVectorcall; sym_kVarargs; sym_kWinapi]; ACTIONS 11651 [sym_kAlias];
   ACTIONS 8222 [sym_kClass; sym_kConst; sym_kConstructor; sym_kDestructor; sym_kEnd;
   sym_kExports; sym_kFinalization; sym_kFunction; sym_kImplementation; sym_kInitialization];
   ACTIONS 1016 [sym_kInline]; ACTIONS 8222 [sym_kInterface; sym_kLabel; sym_kProcedure;
   sym_kProperty; sym_kResourcestring; sym_kThreadvar; sym_kType; sym_kUses; sym_kVar]].

(** State 2042. *)
Definition ts_parse_table_2042 : parse_row :=
  [STATE 2856 [sym__ppIf]; STATE 2638 [sym__procAttributeNoExt];
   STATE 2639 [sym__procAttributesPp]; STATE 15800 [sym_procAttribute];
   STATE 1976 [aux_sym__declProc_repeat1]; ACTIONS 13442 [anon_sym_LBRACK];
   ACTIONS 1734 [aux_sym_ppUsesBlock_token1]; ACTIONS 3 [sym__space];
   ACTIONS 5 [sym_ppDirective]; ACTIONS 3 [sym_comment]; ACTIONS 1016 [sym_kDefault;
   sym_kNodefault]; ACTIONS 11641 [sym_kDispId]; ACTIONS 1727 [sym_kGeneric; sym_kOperator];
   ACTIONS 11643 [sym_kPublic]; ACTIONS 1727 [sym_kForward]; ACTIONS 1016 [sym_kStatic;
   sym_kVirtual; sym_kAbstract; sym_kDynamic; sym_kOverride; sym_kOverload; sym_kReintroduce;
   sym_kStdcall; sym_kCdecl; sym_kCppdecl; sym_kPascal; sym_kRegister; sym_kMwpascal];
   ACTIONS 1727 [sym_kExternal]; ACTIONS 11645 [sym_kMessage]; ACTIONS 11647 [sym_kDeprecated];
   ACTIONS 1016 [sym_kExperimental; sym_kPlatform; sym_kUnimplemented; sym_kCvar];
   ACTIONS 11649 [sym_kExport]; ACTIONS 1016 [sym_kFar; sym_kNear; sym_kSafecall; sym_kAssembler;
   sym_kNostackframe; sym_kInterrupt; sym_kNoreturn; sym_kIocheck; sym_kLocal; sym_kHardfloat;
   sym_kSoftfloat; sym_kMs_abi_default; sym_kMs_abi_cdecl; sym_kSaveregisters;
   sym_kSysv_abi_default; sym_kSysv_abi_cdecl; sym_kVectorcall; sym_kVarargs; sym_kWinapi];
   ACTIONS 11651 [sym_kAlias]; ACTIONS 1727 [sym_kAsm; sym_kBegin; sym_kClass; sym_kConst;
   sym_kConstructor; sym_kDestructor; sym_kExports; sym_kFunction]; ACTIONS 1016 [sym_kInline];
   ACTIONS 1727 [sym_kLabel; sym_kProcedure; sym_kResourcestring; sym_kThreadvar; sym_kType;
   sym_kUses; sym_kVar]].

(** State 2043. *)
Definition ts_parse_table_2043 : parse_row :=
  [STATE 2856 [sym__ppIf]; STATE 2638 [sym__procAttributeNoExt];
   STATE 2639 [sym__procAttributesPp]; STATE 15800 [sym_procAttribute];
   STATE 2114 [aux_sym__declProc_repeat1]; ACTIONS 13445 [anon_sym_LBRACK];
   ACTIONS 1765 [aux_sym_ppUsesBlock_token1]; ACTIONS 3 [sym__space];
   ACTIONS 5 [sym_ppDirective]; ACTIONS 3 [sym_comment]; ACTIONS 1016 [sym_kDefault;
   sym_kNodefault]; ACTIONS 11641 [sym_kDispId]; ACTIONS 1758 [sym_kGeneric; sym_kOperator];
   ACTIONS 11643 [sym_kPublic]; ACTIONS 1758 [sym_kForward]; ACTIONS 1016 [sym_kStatic;
   sym_kVirtual; sym_kAbstract; sym_kDynamic; sym_kOverride; sym_kOverload; sym_kReintroduce;
   sym_kStdcall; sym_kCdecl; sym_kCppdecl; sym_kPascal; sym_kRegister; sym_kMwpascal];
   ACTIONS 1758 [sym_kExternal]; ACTIONS 11645 [sym_kMessage]; ACTIONS 11647 [sym_kDeprecated];
   ACTIONS 1016 [sym_kExperimental; sym_kPlatform; sym_kUnimplemented; sym_kCvar];
   ACTIONS 11649 [sym_kExport]; ACTIONS 1016 [sym_kFar; sym_kNear; sym_kSafecall; sym_kAssembler;
   sym_kNostackframe; sym_kInterrupt; sym_kNoreturn; sym_kIocheck; sym_kLocal; sym_kHardfloat;
   sym_kSoftfloat; sym_kMs_abi_default; sym_kMs_abi_cdecl; sym_kSaveregisters;
   sym_kSysv_abi_default; sym_kSysv_abi_cdecl; sym_kVectorcall; sym_kVarargs; sym_kWinapi];
   ACTIONS 11651 [sym_kAlias]; ACTIONS 1758 [sym_kAsm; sym_kBegin; sym_kClass; sym_kConst;
   sym_kConstructor; sym_kDestructor; sym_kExports; sym_kFunction]; ACTIONS 1016 [sym_kInline];
   ACTIONS 1758 [sym_kLabel; sym_kProcedure; sym_kResourcestring; sym_kThreadvar; sym_kType;
   sym_kUses; sym_kVar]].

(** State 2044. *)
Definition ts_parse_table_2044 : parse_row :=
  [STATE 2560 [sym__procAttribute]; STATE 15931 [sym_procAttribute];
   STATE 2049 [aux_sym_declProcFwd_repeat1]; ACTIONS 13448 [anon_sym_LBRACK];
   ACTIONS 8138 [aux_sym_ppUsesBlock_token1]; ACTIONS 3 [sym__space];
   ACTIONS 5 [sym_ppDirective]; ACTIONS 3 [sym_comment]; ACTIONS 1016 [sym_kDefault;
   sym_kNodefault]; ACTIONS 11641 [sym_kDispId]; ACTIONS 8138 [sym_kGeneric; sym_kOperator];
   ACTIONS 11643 [sym_kPublic]; ACTIONS 1016 [sym_kStatic; sym_kVirtual; sym_kAbstract;
   sym_kDynamic; sym_kOverride; sym_kOverload; sym_kReintroduce; sym_kStdcall; sym_kCdecl;
   sym_kCppdecl; sym_kPascal; sym_kRegister; sym_kMwpascal]; ACTIONS 11645 [sym_kMessage];
   ACTIONS 11647 [sym_kDeprecated]; ACTIONS 1016 [sym_kExperimental; sym_kPlatform;
   sym_kUnimplemented; sym_kCvar]; ACTIONS 11649 [sym_kExport]; ACTIONS 1016 [sym_kFar;
   sym_kNear; sym_kSafecall; sym_kAssembler; sym_kNostackframe; sym_kInterrupt; sym_kNoreturn;
   sym_kIocheck; sym_kLocal; sym_kHardfloat; sym_kSoftfloat; sym_kMs_abi_default;
   sym_kMs_abi_cdecl; sym_kSaveregisters; sym_kSysv_abi_default; sym_kSysv_abi_cdecl;
   sym_kVectorcall; sym_kVarargs; sym_kWinapi]; ACTIONS 11651 [sym_kAlias];
   ACTIONS 8138 [sym_kBegin; sym_kClass; sym_kConst; sym_kConstructor; sym_kDestructor; sym_kEnd;
   sym_kExports; sym_kFinalization; sym_kFunction; sym_kImplementation; sym_kInitialization];
   ACTIONS 1016 [sym_kInline]; ACTIONS 8138 [sym_kInterface; sym_kLabel; sym_kProcedure;
   sym_kResourcestring; sym_kThreadvar; sym_kType; sym_kUses; sym_kVar]].

(** State 2045. *)
Definition ts_parse_table_2045 : parse_row :=
  [STATE 2501 [sym__procAttribute]; STATE 15613 [sym_procAttribute];
   STATE 2040 [aux_sym_declProcFwd_repeat1]; ACTIONS 13451 [anon_sym_LBRACK];
   ACTIONS 8616 [aux_sym_ppUsesBlock_token1]; ACTIONS 3 [sym__space];
   ACTIONS 5 [sym_ppDirective]; ACTIONS 3 [sym_comment]; ACTIONS 1016 [sym_kDefault;
   sym_kNodefault]; ACTIONS 11641 [sym_kDispId]; ACTIONS 8616 [sym_kGeneric; sym_kOperator];
   ACTIONS 11643 [sym_kPublic]; ACTIONS 1016 [sym_kStatic; sym_kVirtual; sym_kAbstract;
   sym_kDynamic; sym_kOverride; sym_kOverload; sym_kReintroduce; sym_kStdcall; sym_kCdecl;
   sym_kCppdecl; sym_kPascal; sym_kRegister; sym_kMwpascal]; ACTIONS 11645 [sym_kMessage];
   ACTIONS 11647 [sym_kDeprecated]; ACTIONS 1016 [sym_kExperimental; sym_kPlatform;
   sym_kUnimplemented; sym_kCvar]; ACTIONS 11649 [sym_kExport]; ACTIONS 1016 [sym_kFar;
   sym_kNear; sym_kSafecall; sym_kAssembler; sym_kNostackframe; sym_kInterrupt; sym_kNoreturn;
   sym_kIocheck; sym_kLocal; sym_kHardfloat; sym_kSoftfloat; sym_kMs_abi_default;
   sym_kMs_abi_cdecl; sym_kSaveregisters; sym_kSysv_abi_default; sym_kSysv_abi_cdecl;
   sym_kVectorcall; sym_kVarargs; sym_kWinapi]; ACTIONS 11651 [sym_kAlias];
   ACTIONS 8616 [sym_kClass; sym_kConst; sym_kConstructor; sym_kDestructor; sym_kEnd;
   sym_kExports; sym_kFinalization; sym_kFunction; sym_kImplementation; sym_kInitialization];
   ACTIONS 1016 [sym_kInline]; ACTIONS 8616 [sym_kInterface; sym_kLabel; sym_kProcedure;
   sym_kProperty; sym_kResourcestring; sym_kThreadvar; sym_kType; sym_kUses; sym_kVar]].

(** State 2046. *)
Definition ts_parse_table_2046 : parse_row :=
  [STATE 2856 [sym__ppIf]; STATE 2638 [sym__procAttributeNoExt];
   STATE 2639 [sym__procAttributesPp]; STATE 15800 [sym_procAttribute];
   STATE 2114 [aux_sym__declProc_repeat1]; ACTIONS 13454 [anon_sym_LBRACK];
   ACTIONS 1798 [aux_sym_ppUsesBlock_token1]; ACTIONS 3 [sym__space];
   ACTIONS 5 [sym_ppDirective]; ACTIONS 3 [sym_comment]; ACTIONS 1016 [sym_kDefault;
   sym_kNodefault]; ACTIONS 11641 [sym_kDispId]; ACTIONS 1791 [sym_kGeneric; sym_kOperator];
   ACTIONS 11643 [sym_kPublic]; ACTIONS 1791 [sym_kForward]; ACTIONS 1016 [sym_kStatic;
   sym_kVirtual; sym_kAbstract; sym_kDynamic; sym_kOverride; sym_kOverload; sym_kReintroduce;
   sym_kStdcall; sym_kCdecl; sym_kCppdecl; sym_kPascal; sym_kRegister; sym_kMwpascal];
   ACTIONS 1791 [sym_kExternal]; ACTIONS 11645 [sym_kMessage]; ACTIONS 11647 [sym_kDeprecated];
   ACTIONS 1016 [sym_kExperimental; sym_kPlatform; sym_kUnimplemented; sym_kCvar];
   ACTIONS 11649 [sym_kExport]; ACTIONS 1016 [sym_kFar; sym_kNear; sym_kSafecall; sym_kAssembler;
   sym_kNostackframe; sym_kInterrupt; sym_kNoreturn; sym_kIocheck; sym_kLocal; sym_kHardfloat;
   sym_kSoftfloat; sym_kMs_abi_default; sym_kMs_abi_cdecl; sym_kSaveregisters;
   sym_kSysv_abi_default; sym_kSysv_abi_cdecl; sym_kVectorcall; sym_kVarargs; sym_kWinapi];
   ACTIONS 11651 [sym_kAlias]; ACTIONS 1791 [sym_kAsm; sym_kBegin; sym_kClass; sym_kConst;
   sym_kConstructor; sym_kDestructor; sym_kExports; sym_kFunction]; ACTIONS 1016 [sym_kInline];
   ACTIONS 1791 [sym_kLabel; sym_kProcedure; sym_kResourcestring; sym_kThreadvar; sym_kType;
   sym_kUses; sym_kVar]].

(** State 2047. *)
Definition ts_parse_table_2047 : parse_row :=
  [STATE 2856 [sym__ppIf]; STATE 2638 [sym__procAttributeNoExt];
   STATE 2639 [sym__procAttributesPp]; STATE 15800 [sym_procAttribute];
   STATE 2055 [aux_sym__declProc_repeat1]; ACTIONS 13457 [anon_sym_LBRACK];
   ACTIONS 1843 [aux_sym_ppUsesBlock_token1]; ACTIONS 3 [sym__space];
   ACTIONS 5 [sym_ppDirective]; ACTIONS 3 [sym_comment]; ACTIONS 1016 [sym_kDefault;
   sym_kNodefault]; ACTIONS 11641 [sym_kDispId]; ACTIONS 1836 [sym_kGeneric; sym_kOperator];
   ACTIONS 11643 [sym_kPublic]; ACTIONS 1836 [sym_kForward]; ACTIONS 1016 [sym_kStatic;
   sym_kVirtual; sym_kAbstract; sym_kDynamic; sym_kOverride; sym_kOverload; sym_kReintroduce;
   sym_kStdcall; sym_kCdecl; sym_kCppdecl; sym_kPascal; sym_kRegister; sym_kMwpascal];
   ACTIONS 1836 [sym_kExternal]; ACTIONS 11645 [sym_kMessage]; ACTIONS 11647 [sym_kDeprecated];
   ACTIONS 1016 [sym_kExperimental; sym_kPlatform; sym_kUnimplemented; sym_kCvar];
   ACTIONS 11649 [sym_kExport]; ACTIONS 1016 [sym_kFar; sym_kNear; sym_kSafecall; sym_kAssembler;
   sym_kNostackframe; sym_kInterrupt; sym_kNoreturn; sym_kIocheck; sym_kLocal; sym_kHardfloat;
   sym_kSoftfloat; sym_kMs_abi_default; sym_kMs_abi_cdecl; sym_kSaveregisters;
   sym_kSysv_abi_default; sym_kSysv_abi_cdecl; sym_kVectorcall; sym_kVarargs; sym_kWinapi];
   ACTIONS 11651 [sym_kAlias]; ACTIONS 1836 [sym_kAsm; sym_kBegin; sym_kClass; sym_kConst;
   sym_kConstructor; sym_kDestructor; sym_kExports; sym_kFunction]; ACTIONS 1016 [sym_kInline];
   ACTIONS 1836 [sym_kLabel; sym_kProcedure; sym_kResourcestring; sym_kThreadvar; sym_kType;
   sym_kUses; sym_kVar]].

(** State 2048. *)
Definition ts_parse_table_2048 : parse_row :=
  [STATE 2560 [sym__procAttribute]; STATE 15931 [sym_procAttribute];
   STATE 2054 [aux_sym_declProcFwd_repeat1]; ACTIONS 13460 [anon_sym_LBRACK];
   ACTIONS 8364 [aux_sym_ppUsesBlock_token1]; ACTIONS 3 [sym__space];
   ACTIONS 5 [sym_ppDirective]; ACTIONS 3 [sym_comment]; ACTIONS 1016 [sym_kDefault;
   sym_kNodefault]; ACTIONS 11641 [sym_kDispId]; ACTIONS 8364 [sym_kGeneric; sym_kOperator];
   ACTIONS 11643 [sym_kPublic]; ACTIONS 1016 [sym_kStatic; sym_kVirtual; sym_kAbstract;
   sym_kDynamic; sym_kOverride; sym_kOverload; sym_kReintroduce; sym_kStdcall; sym_kCdecl;
   sym_kCppdecl; sym_kPascal; sym_kRegister; sym_kMwpascal]; ACTIONS 11645 [sym_kMessage];
   ACTIONS 11647 [sym_kDeprecated]; ACTIONS 1016 [sym_kExperimental; sym_kPlatform;
   sym_kUnimplemented; sym_kCvar]; ACTIONS 11649 [sym_kExport]; ACTIONS 1016 [sym_kFar;
   sym_kNear; sym_kSafecall; sym_kAssembler; sym_kNostackframe; sym_kInterrupt; sym_kNoreturn;
   sym_kIocheck; sym_kLocal; sym_kHardfloat; sym_kSoftfloat; sym_kMs_abi_default;
   sym_kMs_abi_cdecl; sym_kSaveregisters; sym_kSysv_abi_default; sym_kSysv_abi_cdecl;
   sym_kVectorcall; sym_kVarargs; sym_kWinapi]; ACTIONS 11651 [sym_kAlias];
   ACTIONS 8364 [sym_kBegin; sym_kClass; sym_kConst; sym_kConstructor; sym_kDestructor; sym_kEnd;
   sym_kExports; sym_kFinalization; sym_kFunction; sym_kImplementation; sym_kInitialization];
   ACTIONS 1016 [sym_kInline]; ACTIONS 8364 [sym_kInterface; sym_kLabel; sym_kProcedure;
   sym_kResourcestring; sym_kThreadvar; sym_kType; sym_kUses; sym_kVar]].

(** State 2049. *)
Definition ts_parse_table_2049 : parse_row :=
  [STATE 2560 [sym__procAttribute]; STATE 15931 [sym_procAttribute];
   STATE 2080 [aux_sym_declProcFwd_repeat1]; ACTIONS 13463 [anon_sym_LBRACK];
   ACTIONS 8392 [aux_sym_ppUsesBlock_token1]; ACTIONS 3 [sym__space];
   ACTIONS 5 [sym_ppDirective]; ACTIONS 3 [sym_comment]; ACTIONS 1016 [sym_kDefault;
   sym_kNodefault]; ACTIONS 11641 [sym_kDispId]; ACTIONS 8392 [sym_kGeneric; sym_kOperator];
   ACTIONS 11643 [sym_kPublic]; ACTIONS 1016 [sym_kStatic; sym_kVirtual; sym_kAbstract;
   sym_kDynamic; sym_kOverride; sym_kOverload; sym_kReintroduce; sym_kStdcall; sym_kCdecl;
   sym_kCppdecl; sym_kPascal; sym_kRegister; sym_kMwpascal]; ACTIONS 11645 [sym_kMessage];
   ACTIONS 11647 [sym_kDeprecated]; ACTIONS 1016 [sym_kExperimental; sym_kPlatform;
   sym_kUnimplemented; sym_kCvar]; ACTIONS 11649 [sym_kExport]; ACTIONS 1016 [sym_kFar;
   sym_kNear; sym_kSafecall; sym_kAssembler; sym_kNostackframe; sym_kInterrupt; sym_kNoreturn;
   sym_kIocheck; sym_kLocal; sym_kHardfloat; sym_kSoftfloat; sym_kMs_abi_default;
   sym_kMs_abi_cdecl; sym_kSaveregisters; sym_kSysv_abi_default; sym_kSysv_abi_cdecl;
   sym_kVectorcall; sym_kVarargs; sym_kWinapi]; ACTIONS 11651 [sym_kAlias];
   ACTIONS 8392 [sym_kBegin; sym_kClass; sym_kConst; sym_kConstructor; sym_kDestructor; sym_kEnd;
   sym_kExports; sym_kFinalization; sym_kFunction; sym_kImplementation; sym_kInitialization];
   ACTIONS 1016 [sym_kInline]; ACTIONS 8392 [sym_kInterface; sym_kLabel; sym_kProcedure;
   sym_kResourcestring; sym_kThreadvar; sym_kType; sym_kUses; sym_kVar]].

(** State 2050. *)
Definition ts_parse_table_2050 : parse_row :=
  [STATE 2496 [sym__procAttribute]; STATE 14551 [sym_procAttribute];
   STATE 1999 [aux_sym_declProcFwd_repeat1]; ACTIONS 13466 [anon_sym_LBRACK];
   ACTIONS 7658 [aux_sym_ppUsesBlock_token1]; ACTIONS 3 [sym__space];
   ACTIONS 5 [sym_ppDirective]; ACTIONS 3 [sym_comment]; ACTIONS 1016 [sym_kDefault;
   sym_kNodefault]; ACTIONS 11641 [sym_kDispId]; ACTIONS 7658 [sym_kGeneric; sym_kOperator;
   sym_kPublished]; ACTIONS 7671 [sym_kPublic]; ACTIONS 7658 [sym_kProtected; sym_kPrivate;
   sym_kStrict; sym_kRequired; sym_kOptional]; ACTIONS 1016 [sym_kStatic; sym_kVirtual;
   sym_kAbstract; sym_kDynamic; sym_kOverride; sym_kOverload; sym_kReintroduce; sym_kStdcall;
   sym_kCdecl; sym_kCppdecl; sym_kPascal; sym_kRegister; sym_kMwpascal];
   ACTIONS 11645 [sym_kMessage]; ACTIONS 11647 [sym_kDeprecated];
   ACTIONS 1016 [sym_kExperimental; sym_kPlatform; sym_kUnimplemented; sym_kCvar];
   ACTIONS 11649 [sym_kExport]; ACTIONS 1016 [sym_kFar; sym_kNear; sym_kSafecall; sym_kAssembler;
   sym_kNostackframe; sym_kInterrupt; sym_kNoreturn; sym_kIocheck; sym_kLocal; sym_kHardfloat;
   sym_kSoftfloat; sym_kMs_abi_default; sym_kMs_abi_cdecl; sym_kSaveregisters;
   sym_kSysv_abi_default; sym_kSysv_abi_cdecl; sym_kVectorcall; sym_kVarargs; sym_kWinapi];
   ACTIONS 11651 [sym_kAlias]; ACTIONS 7658 [sym_kCase; sym_kClass; sym_kConst; sym_kConstructor;
   sym_kDestructor; sym_kEnd; sym_kFunction]; ACTIONS 1016 [sym_kInline];
   ACTIONS 7658 [sym_kProcedure; sym_kProperty; sym_kResourcestring; sym_kThreadvar; sym_kType;
   sym_kVar]].

(** State 2051. *)
Definition ts_parse_table_2051 : parse_row :=
  [STATE 2856 [sym__ppIf]; STATE 2638 [sym__procAttributeNoExt];
   STATE 2639 [sym__procAttributesPp]; STATE 15800 [sym_procAttribute];
   STATE 2005 [aux_sym__declProc_repeat1]; ACTIONS 13469 [anon_sym_LBRACK];
   ACTIONS 2325 [aux_sym_ppUsesBlock_token1]; ACTIONS 3 [sym__space];
   ACTIONS 5 [sym_ppDirective]; ACTIONS 3 [sym_comment]; ACTIONS 1016 [sym_kDefault;
   sym_kNodefault]; ACTIONS 11641 [sym_kDispId]; ACTIONS 2318 [sym_kGeneric; sym_kOperator];
   ACTIONS 11643 [sym_kPublic]; ACTIONS 2318 [sym_kForward]; ACTIONS 1016 [sym_kStatic;
   sym_kVirtual; sym_kAbstract; sym_kDynamic; sym_kOverride; sym_kOverload; sym_kReintroduce;
   sym_kStdcall; sym_kCdecl; sym_kCppdecl; sym_kPascal; sym_kRegister; sym_kMwpascal];
   ACTIONS 2318 [sym_kExternal]; ACTIONS 11645 [sym_kMessage]; ACTIONS 11647 [sym_kDeprecated];
   ACTIONS 1016 [sym_kExperimental; sym_kPlatform; sym_kUnimplemented; sym_kCvar];
   ACTIONS 11649 [sym_kExport]; ACTIONS 1016 [sym_kFar; sym_kNear; sym_kSafecall; sym_kAssembler;
   sym_kNostackframe; sym_kInterrupt; sym_kNoreturn; sym_kIocheck; sym_kLocal; sym_kHardfloat;
   sym_kSoftfloat; sym_kMs_abi_default; sym_kMs_abi_cdecl; sym_kSaveregisters;
   sym_kSysv_abi_default; sym_kSysv_abi_cdecl; sym_kVectorcall; sym_kVarargs; sym_kWinapi];
   ACTIONS 11651 [sym_kAlias]; ACTIONS 2318 [sym_kAsm; sym_kBegin; sym_kClass; sym_kConst;
   sym_kConstructor; sym_kDestructor; sym_kExports; sym_kFunction]; ACTIONS 1016 [sym_kInline];
   ACTIONS 2318 [sym_kLabel; sym_kProcedure; sym_kResourcestring; sym_kThreadvar; sym_kType;
   sym_kUses; sym_kVar]].

(** State 2052. *)
Definition ts_parse_table_2052 : parse_row :=
  [STATE 2856 [sym__ppIf]; STATE 2638 [sym__procAttributeNoExt];
   STATE 2639 [sym__procAttributesPp]; STATE 15800 [sym_procAttribute];
   STATE 2006 [aux_sym__declProc_repeat1]; ACTIONS 13472 [anon_sym_LBRACK];
   ACTIONS 2358 [aux_sym_ppUsesBlock_token1]; ACTIONS 3 [sym__space];
   ACTIONS 5 [sym_ppDirective]; ACTIONS 3 [sym_comment]; ACTIONS 1016 [sym_kDefault;
   sym_kNodefault]; ACTIONS 11641 [sym_kDispId]; ACTIONS 2351 [sym_kGeneric; sym_kOperator];
   ACTIONS 11643 [sym_kPublic]; ACTIONS 2351 [sym_kForward]; ACTIONS 1016 [sym_kStatic;
   sym_kVirtual; sym_kAbstract; sym_kDynamic; sym_kOverride; sym_kOverload; sym_kReintroduce;
   sym_kStdcall; sym_kCdecl; sym_kCppdecl; sym_kPascal; sym_kRegister; sym_kMwpascal];
   ACTIONS 2351 [sym_kExternal]; ACTIONS 11645 [sym_kMessage]; ACTIONS 11647 [sym_kDeprecated];
   ACTIONS 1016 [sym_kExperimental; sym_kPlatform; sym_kUnimplemented; sym_kCvar];
   ACTIONS 11649 [sym_kExport]; ACTIONS 1016 [sym_kFar; sym_kNear; sym_kSafecall; sym_kAssembler;
   sym_kNostackframe; sym_kInterrupt; sym_kNoreturn; sym_kIocheck; sym_kLocal; sym_kHardfloat;
   sym_kSoftfloat; sym_kMs_abi_default; sym_kMs_abi_cdecl; sym_kSaveregisters;
   sym_kSysv_abi_default; sym_kSysv_abi_cdecl; sym_kVectorcall; sym_kVarargs; sym_kWinapi];
   ACTIONS 11651 [sym_kAlias]; ACTIONS 2351 [sym_kAsm; sym_kBegin; sym_kClass; sym_kConst;
   sym_kConstructor; sym_kDestructor; sym_kExports; sym_kFunction]; ACTIONS 1016 [sym_kInline];
   ACTIONS 2351 [sym_kLabel; sym_kProcedure; sym_kResourcestring; sym_kThreadvar; sym_kType;
   sym_kUses; sym_kVar]].

(** State 2053. *)
Definition ts_parse_table_2053 : parse_row :=
  [STATE 2501 [sym__procAttribute]; STATE 15613 [sym_procAttribute];
   STATE 2067 [aux_sym_declProcFwd_repeat1]; ACTIONS 13475 [anon_sym_LBRACK];
   ACTIONS 8644 [aux_sym_ppUsesBlock_token1]; ACTIONS 3 [sym__space];
   ACTIONS 5 [sym_ppDirective]; ACTIONS 3 [sym_comment]; ACTIONS 1016 [sym_kDefault;
   sym_kNodefault]; ACTIONS 11641 [sym_kDispId]; ACTIONS 8644 [sym_kGeneric; sym_kOperator];
   ACTIONS 11643 [sym_kPublic]; ACTIONS 1016 [sym_kStatic; sym_kVirtual; sym_kAbstract;
   sym_kDynamic; sym_kOverride; sym_kOverload; sym_kReintroduce; sym_kStdcall; sym_kCdecl;
   sym_kCppdecl; sym_kPascal; sym_kRegister; sym_kMwpascal]; ACTIONS 11645 [sym_kMessage];
   ACTIONS 11647 [sym_kDeprecated]; ACTIONS 1016 [sym_kExperimental; sym_kPlatform;
   sym_kUnimplemented; sym_kCvar]; ACTIONS 11649 [sym_kExport]; ACTIONS 1016 [sym_kFar;
   sym_kNear; sym_kSafecall; sym_kAssembler; sym_kNostackframe; sym_kInterrupt; sym_kNoreturn;
   sym_kIocheck; sym_kLocal; sym_kHardfloat; sym_kSoftfloat; sym_kMs_abi_default;
   sym_kMs_abi_cdecl; sym_kSaveregisters; sym_kSysv_abi_default; sym_kSysv_abi_cdecl;
   sym_kVectorcall; sym_kVarargs; sym_kWinapi]; ACTIONS 11651 [sym_kAlias];
   ACTIONS 8644 [sym_kClass; sym_kConst; sym_kConstructor; sym_kDestructor; sym_kEnd;
   sym_kExports; sym_kFinalization; sym_kFunction; sym_kImplementation; sym_kInitialization];
   ACTIONS 1016 [sym_kInline]; ACTIONS 8644 [sym_kInterface; sym_kLabel; sym_kProcedure;
   sym_kProperty; sym_kResourcestring; sym_kThreadvar; sym_kType; sym_kUses; sym_kVar]].

(** State 2054. *)
Definition ts_parse_table_2054 : parse_row :=
  [STATE 2560 [sym__procAttribute]; STATE 15931 [sym_procAttribute];
   STATE 2080 [aux_sym_declProcFwd_repeat1]; ACTIONS 13478 [anon_sym_LBRACK];
   ACTIONS 8560 [aux_sym_ppUsesBlock_token1]; ACTIONS 3 [sym__space];
   ACTIONS 5 [sym_ppDirective]; ACTIONS 3 [sym_comment]; ACTIONS 1016 [sym_kDefault;
   sym_kNodefault]; ACTIONS 11641 [sym_kDispId]; ACTIONS 8560 [sym_kGeneric; sym_kOperator];
   ACTIONS 11643 [sym_kPublic]; ACTIONS 1016 [sym_kStatic; sym_kVirtual; sym_kAbstract;
   sym_kDynamic; sym_kOverride; sym_kOverload; sym_kReintroduce; sym_kStdcall; sym_kCdecl;
   sym_kCppdecl; sym_kPascal; sym_kRegister; sym_kMwpascal]; ACTIONS 11645 [sym_kMessage];
   ACTIONS 11647 [sym_kDeprecated]; ACTIONS 1016 [sym_kExperimental; sym_kPlatform;
   sym_kUnimplemented; sym_kCvar]; ACTIONS 11649 [sym_kExport]; ACTIONS 1016 [sym_kFar;
   sym_kNear; sym_kSafecall; sym_kAssembler; sym_kNostackframe; sym_kInterrupt; sym_kNoreturn;
   sym_kIocheck; sym_kLocal; sym_kHardfloat; sym_kSoftfloat; sym_kMs_abi_default;
   sym_kMs_abi_cdecl; sym_kSaveregisters; sym_kSysv_abi_default; sym_kSysv_abi_cdecl;
   sym_kVectorcall; sym_kVarargs; sym_kWinapi]; ACTIONS 11651 [sym_kAlias];
   ACTIONS 8560 [sym_kBegin; sym_kClass; sym_kConst; sym_kConstructor; sym_kDestructor; sym_kEnd;
   sym_kExports; sym_kFinalization; sym_kFunction; sym_kImplementation; sym_kInitialization];
   ACTIONS 1016 [sym_kInline]; ACTIONS 8560 [sym_kInterface; sym_kLabel; sym_kProcedure;
   sym_kResourcestring; sym_kThreadvar; sym_kType; sym_kUses; sym_kVar]].

(** State 2055. *)
Definition ts_parse_table_2055 : parse_row :=
  [STATE 2856 [sym__ppIf]; STATE 2638 [sym__procAttributeNoExt];
   STATE 2639 [sym__procAttributesPp]; STATE 15800 [sym_procAttribute];
   STATE 2114 [aux_sym__declProc_repeat1]; ACTIONS 13481 [anon_sym_LBRACK];
   ACTIONS 2403 [aux_sym_ppUsesBlock_token1]; ACTIONS 3 [sym__space];
   ACTIONS 5 [sym_ppDirective]; ACTIONS 3 [sym_comment]; ACTIONS 1016 [sym_kDefault;
   sym_kNodefault]; ACTIONS 11641 [sym_kDispId]; ACTIONS 2396 [sym_kGeneric; sym_kOperator];
   ACTIONS 11643 [sym_kPublic]; ACTIONS 2396 [sym_kForward]; ACTIONS 1016 [sym_kStatic;
   sym_kVirtual; sym_kAbstract; sym_kDynamic; sym_kOverride; sym_kOverload; sym_kReintroduce;
   sym_kStdcall; sym_kCdecl; sym_kCppdecl; sym_kPascal; sym_kRegister; sym_kMwpascal];
   ACTIONS 2396 [sym_kExternal]; ACTIONS 11645 [sym_kMessage]; ACTIONS 11647 [sym_kDeprecated];
   ACTIONS 1016 [sym_kExperimental; sym_kPlatform; sym_kUnimplemented; sym_kCvar];
   ACTIONS 11649 [sym_kExport]; ACTIONS 1016 [sym_kFar; sym_kNear; sym_kSafecall; sym_kAssembler;
   sym_kNostackframe; sym_kInterrupt; sym_kNoreturn; sym_kIocheck; sym_kLocal; sym_kHardfloat;
   sym_kSoftfloat; sym_kMs_abi_default; sym_kMs_abi_cdecl; sym_kSaveregisters;
   sym_kSysv_abi_default; sym_kSysv_abi_cdecl; sym_kVectorcall; sym_kVarargs; sym_kWinapi];
   ACTIONS 11651 [sym_kAlias]; ACTIONS 2396 [sym_kAsm; sym_kBegin; sym_kClass; sym_kConst;
   sym_kConstructor; sym_kDestructor; sym_kExports; sym_kFunction]; ACTIONS 1016 [sym_kInline];
   ACTIONS 2396 [sym_kLabel; sym_kProcedure; sym_kResourcestring; sym_kThreadvar; sym_kType;
   sym_kUses; sym_kVar]].

(** State 2056. *)
Definition ts_parse_table_2056 : parse_row :=
  [STATE 2501 [sym__procAttribute]; STATE 15613 [sym_procAttribute];
   STATE 2069 [aux_sym_declProcFwd_repeat1]; ACTIONS 13484 [anon_sym_LBRACK];
   ACTIONS 8672 [aux_sym_ppUsesBlock_token1]; ACTIONS 3 [sym__space];
   ACTIONS 5 [sym_ppDirective]; ACTIONS 3 [sym_comment]; ACTIONS 1016 [sym_kDefault;
   sym_kNodefault]; ACTIONS 11641 [sym_kDispId]; ACTIONS 8672 [sym_kGeneric; sym_kOperator];
   ACTIONS 11643 [sym_kPublic]; ACTIONS 1016 [sym_kStatic; sym_kVirtual; sym_kAbstract;
   sym_kDynamic; sym_kOverride; sym_kOverload; sym_kReintroduce; sym_kStdcall; sym_kCdecl;
   sym_kCppdecl; sym_kPascal; sym_kRegister; sym_kMwpascal]; ACTIONS 11645 [sym_kMessage];
   ACTIONS 11647 [sym_kDeprecated]; ACTIONS 1016 [sym_kExperimental; sym_kPlatform;
   sym_kUnimplemented; sym_kCvar]; ACTIONS 11649 [sym_kExport]; ACTIONS 1016 [sym_kFar;
   sym_kNear; sym_kSafecall; sym_kAssembler; sym_kNostackframe; sym_kInterrupt; sym_kNoreturn;
   sym_kIocheck; sym_kLocal; sym_kHardfloat; sym_kSoftfloat; sym_kMs_abi_default;
   sym_kMs_abi_cdecl; sym_kSaveregisters; sym_kSysv_abi_default; sym_kSysv_abi_cdecl;
   sym_kVectorcall; sym_kVarargs; sym_kWinapi]; ACTIONS 11651 [sym_kAlias];
   ACTIONS 8672 [sym_kClass; sym_kConst; sym_kConstructor; sym_kDestructor; sym_kEnd;
   sym_kExports; sym_kFinalization; sym_kFunction; sym_kImplementation; sym_kInitialization];
   ACTIONS 1016 [sym_kInline]; ACTIONS 8672 [sym_kInterface; sym_kLabel; sym_kProcedure;
   sym_kProperty; sym_kResourcestring; sym_kThreadvar; sym_kType; sym_kUses; sym_kVar]].

(** State 2057. *)
Definition ts_parse_table_2057 : parse_row :=
  [STATE 2501 [sym__procAttribute]; STATE 15613 [sym_procAttribute];
   STATE 2070 [aux_sym_declProcFwd_repeat1]; ACTIONS 13487 [anon_sym_LBRACK];
   ACTIONS 9604 [aux_sym_ppUsesBlock_token1]; ACTIONS 3 [sym__space];
   ACTIONS 5 [sym_ppDirective]; ACTIONS 3 [sym_comment]; ACTIONS 1016 [sym_kDefault;
   sym_kNodefault]; ACTIONS 11641 [sym_kDispId]; ACTIONS 9604 [sym_kGeneric; sym_kOperator];
   ACTIONS 11643 [sym_kPublic]; ACTIONS 1016 [sym_kStatic; sym_kVirtual; sym_kAbstract;
   sym_kDynamic; sym_kOverride; sym_kOverload; sym_kReintroduce; sym_kStdcall; sym_kCdecl;
   sym_kCppdecl; sym_kPascal; sym_kRegister; sym_kMwpascal]; ACTIONS 11645 [sym_kMessage];
   ACTIONS 11647 [sym_kDeprecated]; ACTIONS 1016 [sym_kExperimental; sym_kPlatform;
   sym_kUnimplemented; sym_kCvar]; ACTIONS 11649 [sym_kExport]; ACTIONS 1016 [sym_kFar;
   sym_kNear; sym_kSafecall; sym_kAssembler; sym_kNostackframe; sym_kInterrupt; sym_kNoreturn;
   sym_kIocheck; sym_kLocal; sym_kHardfloat; sym_kSoftfloat; sym_kMs_abi_default;
   sym_kMs_abi_cdecl; sym_kSaveregisters; sym_kSysv_abi_default; sym_kSysv_abi_cdecl;
   sym_kVectorcall; sym_kVarargs; sym_kWinapi]; ACTIONS 11651 [sym_kAlias];
   ACTIONS 9604 [sym_kClass; sym_kConst; sym_kConstructor; sym_kDestructor; sym_kEnd;
   sym_kExports; sym_kFinalization; sym_kFunction; sym_kImplementation; sym_kInitialization];
   ACTIONS 1016 [sym_kInline]; ACTIONS 9604 [sym_kInterface; sym_kLabel; sym_kProcedure;
   sym_kProperty; sym_kResourcestring; sym_kThreadvar; sym_kType; sym_kUses; sym_kVar]].

(** State 2058. *)
Definition ts_parse_table_2058 : parse_row :=
  [STATE 2501 [sym__procAttribute]; STATE 15613 [sym_procAttribute];
   STATE 2040 [aux_sym_declProcFwd_repeat1]; ACTIONS 13490 [anon_sym_LBRACK];
   ACTIONS 8728 [aux_sym_ppUsesBlock_token1]; ACTIONS 3 [sym__space];
   ACTIONS 5 [sym_ppDirective]; ACTIONS 3 [sym_comment]; ACTIONS 1016 [sym_kDefault;
   sym_kNodefault]; ACTIONS 11641 [sym_kDispId]; ACTIONS 8728 [sym_kGeneric; sym_kOperator];
   ACTIONS 11643 [sym_kPublic]; ACTIONS 1016 [sym_kStatic; sym_kVirtual; sym_kAbstract;
   sym_kDynamic; sym_kOverride; sym_kOverload; sym_kReintroduce; sym_kStdcall; sym_kCdecl;
   sym_kCppdecl; sym_kPascal; sym_kRegister; sym_kMwpascal]; ACTIONS 11645 [sym_kMessage];
   ACTIONS 11647 [sym_kDeprecated]; ACTIONS 1016 [sym_kExperimental; sym_kPlatform;
   sym_kUnimplemented; sym_kCvar]; ACTIONS 11649 [sym_kExport]; ACTIONS 1016 [sym_kFar;
   sym_kNear; sym_kSafecall; sym_kAssembler; sym_kNostackframe; sym_kInterrupt; sym_kNoreturn;
   sym_kIocheck; sym_kLocal; sym_kHardfloat; sym_kSoftfloat; sym_kMs_abi_default;
   sym_kMs_abi_cdecl; sym_kSaveregisters; sym_kSysv_abi_default; sym_kSysv_abi_cdecl;
   sym_kVectorcall; sym_kVarargs; sym_kWinapi]; ACTIONS 11651 [sym_kAlias];
   ACTIONS 8728 [sym_kClass; sym_kConst; sym_kConstructor; sym_kDestructor; sym_kEnd;
   sym_kExports; sym_kFinalization; sym_kFunction; sym_kImplementation; sym_kInitialization];
   ACTIONS 1016 [sym_kInline]; ACTIONS 8728 [sym_kInterface; sym_kLabel; sym_kProcedure;
   sym_kProperty; sym_kResourcestring; sym_kThreadvar; sym_kType; sym_kUses; sym_kVar]].

(** State 2059. *)
Definition ts_parse_table_2059 : parse_row :=
  [STATE 2501 [sym__procAttribute]; STATE 15613 [sym_procAttribute];
   STATE 2074 [aux_sym_declProcFwd_repeat1]; ACTIONS 13493 [anon_sym_LBRACK];
   ACTIONS 8786 [aux_sym_ppUsesBlock_token1]; ACTIONS 3 [sym__space];
   ACTIONS 5 [sym_ppDirective]; ACTIONS 3 [sym_comment]; ACTIONS 1016 [sym_kDefault;
   sym_kNodefault]; ACTIONS 11641 [sym_kDispId]; ACTIONS 8786 [sym_kGeneric; sym_kOperator];
   ACTIONS 11643 [sym_kPublic]; ACTIONS 1016 [sym_kStatic; sym_kVirtual; sym_kAbstract;
   sym_kDynamic; sym_kOverride; sym_kOverload; sym_kReintroduce; sym_kStdcall; sym_kCdecl;
   sym_kCppdecl; sym_kPascal; sym_kRegister; sym_kMwpascal]; ACTIONS 11645 [sym_kMessage];
   ACTIONS 11647 [sym_kDeprecated]; ACTIONS 1016 [sym_kExperimental; sym_kPlatform;
   sym_kUnimplemented; sym_kCvar]; ACTIONS 11649 [sym_kExport]; ACTIONS 1016 [sym_kFar;
   sym_kNear; sym_kSafecall; sym_kAssembler; sym_kNostackframe; sym_kInterrupt; sym_kNoreturn;
   sym_kIocheck; sym_kLocal; sym_kHardfloat; sym_kSoftfloat; sym_kMs_abi_default;
   sym_kMs_abi_cdecl; sym_kSaveregisters; sym_kSysv_abi_default; sym_kSysv_abi_cdecl;
   sym_kVectorcall; sym_kVarargs; sym_kWinapi]; ACTIONS 11651 [sym_kAlias];
   ACTIONS 8786 [sym_kClass; sym_kConst; sym_kConstructor; sym_kDestructor; sym_kEnd;
   sym_kExports; sym_kFinalization; sym_kFunction; sym_kImplementation; sym_kInitialization];
   ACTIONS 1016 [sym_kInline]; ACTIONS 8786 [sym_kInterface; sym_kLabel; sym_kProcedure;
   sym_kProperty; sym_kResourcestring; sym_kThreadvar; sym_kType; sym_kUses; sym_kVar]].

(** State 2060. *)
Definition ts_parse_table_2060 : parse_row :=
  [STATE 2856 [sym__ppIf]; STATE 2638 [sym__procAttributeNoExt];
   STATE 2639 [sym__procAttributesPp]; STATE 15800 [sym_procAttribute];
   STATE 2114 [aux_sym__declProc_repeat1]; ACTIONS 13496 [anon_sym_LBRACK];
   ACTIONS 2975 [aux_sym_ppUsesBlock_token1]; ACTIONS 3 [sym__space];
   ACTIONS 5 [sym_ppDirective]; ACTIONS 3 [sym_comment]; ACTIONS 1016 [sym_kDefault;
   sym_kNodefault]; ACTIONS 11641 [sym_kDispId]; ACTIONS 2968 [sym_kGeneric; sym_kOperator];
   ACTIONS 11643 [sym_kPublic]; ACTIONS 2968 [sym_kForward]; ACTIONS 1016 [sym_kStatic;
   sym_kVirtual; sym_kAbstract; sym_kDynamic; sym_kOverride; sym_kOverload; sym_kReintroduce;
   sym_kStdcall; sym_kCdecl; sym_kCppdecl; sym_kPascal; sym_kRegister; sym_kMwpascal];
   ACTIONS 2968 [sym_kExternal]; ACTIONS 11645 [sym_kMessage]; ACTIONS 11647 [sym_kDeprecated];
   ACTIONS 1016 [sym_kExperimental; sym_kPlatform; sym_kUnimplemented; sym_kCvar];
   ACTIONS 11649 [sym_kExport]; ACTIONS 1016 [sym_kFar; sym_kNear; sym_kSafecall; sym_kAssembler;
   sym_kNostackframe; sym_kInterrupt; sym_kNoreturn; sym_kIocheck; sym_kLocal; sym_kHardfloat;
   sym_kSoftfloat; sym_kMs_abi_default; sym_kMs_abi_cdecl; sym_kSaveregisters;
   sym_kSysv_abi_default; sym_kSysv_abi_cdecl; sym_kVectorcall; sym_kVarargs; sym_kWinapi];
   ACTIONS 11651 [sym_kAlias]; ACTIONS 2968 [sym_kAsm; sym_kBegin; sym_kClass; sym_kConst;
   sym_kConstructor; sym_kDestructor; sym_kExports; sym_kFunction]; ACTIONS 1016 [sym_kInline];
   ACTIONS 2968 [sym_kLabel; sym_kProcedure; sym_kResourcestring; sym_kThreadvar; sym_kType;
   sym_kUses; sym_kVar]].

(** State 2061. *)
Definition ts_parse_table_2061 : parse_row :=
  [STATE 2856 [sym__ppIf]; STATE 2638 [sym__procAttributeNoExt];
   STATE 2639 [sym__procAttributesPp]; STATE 15800 [sym_procAttribute];
   STATE 2079 [aux_sym__declProc_repeat1]; ACTIONS 13499 [anon_sym_LBRACK];
   ACTIONS 3008 [aux_sym_ppUsesBlock_token1]; ACTIONS 3 [sym__space];
   ACTIONS 5 [sym_ppDirective]; ACTIONS 3 [sym_comment]; ACTIONS 1016 [sym_kDefault;
   sym_kNodefault]; ACTIONS 11641 [sym_kDispId]; ACTIONS 3001 [sym_kGeneric; sym_kOperator];
   ACTIONS 11643 [sym_kPublic]; ACTIONS 3001 [sym_kForward]; ACTIONS 1016 [sym_kStatic;
   sym_kVirtual; sym_kAbstract; sym_kDynamic; sym_kOverride; sym_kOverload; sym_kReintroduce;
   sym_kStdcall; sym_kCdecl; sym_kCppdecl; sym_kPascal; sym_kRegister; sym_kMwpascal];
   ACTIONS 3001 [sym_kExternal]; ACTIONS 11645 [sym_kMessage]; ACTIONS 11647 [sym_kDeprecated];
   ACTIONS 1016 [sym_kExperimental; sym_kPlatform; sym_kUnimplemented; sym_kCvar];
   ACTIONS 11649 [sym_kExport]; ACTIONS 1016 [sym_kFar; sym_kNear; sym_kSafecall; sym_kAssembler;
   sym_kNostackframe; sym_kInterrupt; sym_kNoreturn; sym_kIocheck; sym_kLocal; sym_kHardfloat;
   sym_kSoftfloat; sym_kMs_abi_default; sym_kMs_abi_cdecl; sym_kSaveregisters;
   sym_kSysv_abi_default; sym_kSysv_abi_cdecl; sym_kVectorcall; sym_kVarargs; sym_kWinapi];
   ACTIONS 11651 [sym_kAlias]; ACTIONS 3001 [sym_kAsm; sym_kBegin; sym_kClass; sym_kConst;
   sym_kConstructor; sym_kDestructor; sym_kExports; sym_kFunction]; ACTIONS 1016 [sym_kInline];
   ACTIONS 3001 [sym_kLabel; sym_kProcedure; sym_kResourcestring; sym_kThreadvar; sym_kType;
   sym_kUses; sym_kVar]].

(** State 2062. *)
Definition ts_parse_table_2062 : parse_row :=
  [STATE 2856 [sym__ppIf]; STATE 2638 [sym__procAttributeNoExt];
   STATE 2639 [sym__procAttributesPp]; STATE 15800 [sym_procAttribute];
   STATE 1982 [aux_sym__declProc_repeat1]; ACTIONS 13502 [anon_sym_LBRACK];
   ACTIONS 3041 [aux_sym_ppUsesBlock_token1]; ACTIONS 3 [sym__space];
   ACTIONS 5 [sym_ppDirective]; ACTIONS 3 [sym_comment]; ACTIONS 1016 [sym_kDefault;
   sym_kNodefault]; ACTIONS 11641 [sym_kDispId]; ACTIONS 3034 [sym_kGeneric; sym_kOperator];
   ACTIONS 11643 [sym_kPublic]; ACTIONS 3034 [sym_kForward]; ACTIONS 1016 [sym_kStatic;
   sym_kVirtual; sym_kAbstract; sym_kDynamic; sym_kOverride; sym_kOverload; sym_kReintroduce;
   sym_kStdcall; sym_kCdecl; sym_kCppdecl; sym_kPascal; sym_kRegister; sym_kMwpascal];
   ACTIONS 3034 [sym_kExternal]; ACTIONS 11645 [sym_kMessage]; ACTIONS 11647 [sym_kDeprecated];
   ACTIONS 1016 [sym_kExperimental; sym_kPlatform; sym_kUnimplemented; sym_kCvar];
   ACTIONS 11649 [sym_kExport]; ACTIONS 1016 [sym_kFar; sym_kNear; sym_kSafecall; sym_kAssembler;
   sym_kNostackframe; sym_kInterrupt; sym_kNoreturn; sym_kIocheck; sym_kLocal; sym_kHardfloat;
   sym_kSoftfloat; sym_kMs_abi_default; sym_kMs_abi_cdecl; sym_kSaveregisters;
   sym_kSysv_abi_default; sym_kSysv_abi_cdecl; sym_kVectorcall; sym_kVarargs; sym_kWinapi];
   ACTIONS 11651 [sym_kAlias]; ACTIONS 3034 [sym_kAsm; sym_kBegin; sym_kClass; sym_kConst;
   sym_kConstructor; sym_kDestructor; sym_kExports; sym_kFunction]; ACTIONS 1016 [sym_kInline];
   ACTIONS 3034 [sym_kLabel; sym_kProcedure; sym_kResourcestring; sym_kThreadvar; sym_kType;
   sym_kUses; sym_kVar]].

(** State 2063. *)
Definition ts_parse_table_2063 : parse_row :=
  [STATE 2856 [sym__ppIf]; STATE 2638 [sym__procAttributeNoExt];
   STATE 2639 [sym__procAttributesPp]; STATE 15800 [sym_procAttribute];
   STATE 2114 [aux_sym__declProc_repeat1]; ACTIONS 13505 [anon_sym_LBRACK];
   ACTIONS 3074 [aux_sym_ppUsesBlock_token1]; ACTIONS 3 [sym__space];
   ACTIONS 5 [sym_ppDirective]; ACTIONS 3 [sym_comment]; ACTIONS 1016 [sym_kDefault;
   sym_kNodefault]; ACTIONS 11641 [sym_kDispId]; ACTIONS 3067 [sym_kGeneric; sym_kOperator];
   ACTIONS 11643 [sym_kPublic]; ACTIONS 3067 [sym_kForward]; ACTIONS 1016 [sym_kStatic;
   sym_kVirtual; sym_kAbstract; sym_kDynamic; sym_kOverride; sym_kOverload; sym_kReintroduce;
   sym_kStdcall; sym_kCdecl; sym_kCppdecl; sym_kPascal; sym_kRegister; sym_kMwpascal];
   ACTIONS 3067 [sym_kExternal]; ACTIONS 11645 [sym_kMessage]; ACTIONS 11647 [sym_kDeprecated];
   ACTIONS 1016 [sym_kExperimental; sym_kPlatform; sym_kUnimplemented; sym_kCvar];
   ACTIONS 11649 [sym_kExport]; ACTIONS 1016 [sym_kFar; sym_kNear; sym_kSafecall; sym_kAssembler;
   sym_kNostackframe; sym_kInterrupt; sym_kNoreturn; sym_kIocheck; sym_kLocal; sym_kHardfloat;
   sym_kSoftfloat; sym_kMs_abi_default; sym_kMs_abi_cdecl; sym_kSaveregisters;
   sym_kSysv_abi_default; sym_kSysv_abi_cdecl; sym_kVectorcall; sym_kVarargs; sym_kWinapi];
   ACTIONS 11651 [sym_kAlias]; ACTIONS 3067 [sym_kAsm; sym_kBegin; sym_kClass; sym_kConst;
   sym_kConstructor; sym_kDestructor; sym_kExports; sym_kFunction]; ACTIONS 1016 [sym_kInline];
   ACTIONS 3067 [sym_kLabel; sym_kProcedure; sym_kResourcestring; sym_kThreadvar; sym_kType;
   sym_kUses; sym_kVar]].

(** State 2064. *)
Definition ts_parse_table_2064 : parse_row :=
  [STATE 2501 [sym__procAttribute]; STATE 15613 [sym_procAttribute];
   STATE 2040 [aux_sym_declProcFwd_repeat1]; ACTIONS 13508 [anon_sym_LBRACK];
   ACTIONS 8814 [aux_sym_ppUsesBlock_token1]; ACTIONS 3 [sym__space];
   ACTIONS 5 [sym_ppDirective]; ACTIONS 3 [sym_comment]; ACTIONS 1016 [sym_kDefault;
   sym_kNodefault]; ACTIONS 11641 [sym_kDispId]; ACTIONS 8814 [sym_kGeneric; sym_kOperator];
   ACTIONS 11643 [sym_kPublic]; ACTIONS 1016 [sym_kStatic; sym_kVirtual; sym_kAbstract;
   sym_kDynamic; sym_kOverride; sym_kOverload; sym_kReintroduce; sym_kStdcall; sym_kCdecl;
   sym_kCppdecl; sym_kPascal; sym_kRegister; sym_kMwpascal]; ACTIONS 11645 [sym_kMessage];
   ACTIONS 11647 [sym_kDeprecated]; ACTIONS 1016 [sym_kExperimental; sym_kPlatform;
   sym_kUnimplemented; sym_kCvar]; ACTIONS 11649 [sym_kExport]; ACTIONS 1016 [sym_kFar;
   sym_kNear; sym_kSafecall; sym_kAssembler; sym_kNostackframe; sym_kInterrupt; sym_kNoreturn;
   sym_kIocheck; sym_kLocal; sym_kHardfloat; sym_kSoftfloat; sym_kMs_abi_default;
   sym_kMs_abi_cdecl; sym_kSaveregisters; sym_kSysv_abi_default; sym_kSysv_abi_cdecl;
   sym_kVectorcall; sym_kVarargs; sym_kWinapi]; ACTIONS 11651 [sym_kAlias];
   ACTIONS 8814 [sym_kClass; sym_kConst; sym_kConstructor; sym_kDestructor; sym_kEnd;
   sym_kExports; sym_kFinalization; sym_kFunction; sym_kImplementation; sym_kInitialization];
   ACTIONS 1016 [sym_kInline]; ACTIONS 8814 [sym_kInterface; sym_kLabel; sym_kProcedure;
   sym_kProperty; sym_kResourcestring; sym_kThreadvar; sym_kType; sym_kUses; sym_kVar]].

(** State 2065. *)
Definition ts_parse_table_2065 : parse_row :=
  [STATE 2501 [sym__procAttribute]; STATE 15613 [sym_procAttribute];
   STATE 2076 [aux_sym_declProcFwd_repeat1]; ACTIONS 13511 [anon_sym_LBRACK];
   ACTIONS 8898 [aux_sym_ppUsesBlock_token1]; ACTIONS 3 [sym__space];
   ACTIONS 5 [sym_ppDirective]; ACTIONS 3 [sym_comment]; ACTIONS 1016 [sym_kDefault;
   sym_kNodefault]; ACTIONS 11641 [sym_kDispId]; ACTIONS 8898 [sym_kGeneric; sym_kOperator];
   ACTIONS 11643 [sym_kPublic]; ACTIONS 1016 [sym_kStatic; sym_kVirtual; sym_kAbstract;
   sym_kDynamic; sym_kOverride; sym_kOverload; sym_kReintroduce; sym_kStdcall; sym_kCdecl;
   sym_kCppdecl; sym_kPascal; sym_kRegister; sym_kMwpascal]; ACTIONS 11645 [sym_kMessage];
   ACTIONS 11647 [sym_kDeprecated]; ACTIONS 1016 [sym_kExperimental; sym_kPlatform;
   sym_kUnimplemented; sym_kCvar]; ACTIONS 11649 [sym_kExport]; ACTIONS 1016 [sym_kFar;
   sym_kNear; sym_kSafecall; sym_kAssembler; sym_kNostackframe; sym_kInterrupt; sym_kNoreturn;
   sym_kIocheck; sym_kLocal; sym_kHardfloat; sym_kSoftfloat; sym_kMs_abi_default;
   sym_kMs_abi_cdecl; sym_kSaveregisters; sym_kSysv_abi_default; sym_kSysv_abi_cdecl;
   sym_kVectorcall; sym_kVarargs; sym_kWinapi]; ACTIONS 11651 [sym_kAlias];
   ACTIONS 8898 [sym_kClass; sym_kConst; sym_kConstructor; sym_kDestructor; sym_kEnd;
   sym_kExports; sym_kFinalization; sym_kFunction; sym_kImplementation; sym_kInitialization];
   ACTIONS 1016 [sym_kInline]; ACTIONS 8898 [sym_kInterface; sym_kLabel; sym_kProcedure;
   sym_kProperty; sym_kResourcestring; sym_kThreadvar; sym_kType; sym_kUses; sym_kVar]].

(** State 2066. *)
Definition ts_parse_table_2066 : parse_row :=
  [STATE 2501 [sym__procAttribute]; STATE 15613 [sym_procAttribute];
   STATE 2084 [aux_sym_declProcFwd_repeat1]; ACTIONS 13514 [anon_sym_LBRACK];
   ACTIONS 8982 [aux_sym_ppUsesBlock_token1]; ACTIONS 3 [sym__space];
   ACTIONS 5 [sym_ppDirective]; ACTIONS 3 [sym_comment]; ACTIONS 1016 [sym_kDefault;
   sym_kNodefault]; ACTIONS 11641 [sym_kDispId]; ACTIONS 8982 [sym_kGeneric; sym_kOperator];
   ACTIONS 11643 [sym_kPublic]; ACTIONS 1016 [sym_kStatic; sym_kVirtual; sym_kAbstract;
   sym_kDynamic; sym_kOverride; sym_kOverload; sym_kReintroduce; sym_kStdcall; sym_kCdecl;
   sym_kCppdecl; sym_kPascal; sym_kRegister; sym_kMwpascal]; ACTIONS 11645 [sym_kMessage];
   ACTIONS 11647 [sym_kDeprecated]; ACTIONS 1016 [sym_kExperimental; sym_kPlatform;
   sym_kUnimplemented; sym_kCvar]; ACTIONS 11649 [sym_kExport]; ACTIONS 1016 [sym_kFar;
   sym_kNear; sym_kSafecall; sym_kAssembler; sym_kNostackframe; sym_kInterrupt; sym_kNoreturn;
   sym_kIocheck; sym_kLocal; sym_kHardfloat; sym_kSoftfloat; sym_kMs_abi_default;
   sym_kMs_abi_cdecl; sym_kSaveregisters; sym_kSysv_abi_default; sym_kSysv_abi_cdecl;
   sym_kVectorcall; sym_kVarargs; sym_kWinapi]; ACTIONS 11651 [sym_kAlias];
   ACTIONS 8982 [sym_kClass; sym_kConst; sym_kConstructor; sym_kDestructor; sym_kEnd;
   sym_kExports; sym_kFinalization; sym_kFunction; sym_kImplementation; sym_kInitialization];
   ACTIONS 1016 [sym_kInline]; ACTIONS 8982 [sym_kInterface; sym_kLabel; sym_kProcedure;
   sym_kProperty; sym_kResourcestring; sym_kThreadvar; sym_kType; sym_kUses; sym_kVar]].

(** State 2067. *)
Definition ts_parse_table_2067 : parse_row :=
  [STATE 2501 [sym__procAttribute]; STATE 15613 [sym_procAttribute];
   STATE 2040 [aux_sym_declProcFwd_repeat1]; ACTIONS 13517 [anon_sym_LBRACK];
   ACTIONS 9010 [aux_sym_ppUsesBlock_token1]; ACTIONS 3 [sym__space];
   ACTIONS 5 [sym_ppDirective]; ACTIONS 3 [sym_comment]; ACTIONS 1016 [sym_kDefault;
   sym_kNodefault]; ACTIONS 11641 [sym_kDispId]; ACTIONS 9010 [sym_kGeneric; sym_kOperator];
   ACTIONS 11643 [sym_kPublic]; ACTIONS 1016 [sym_kStatic; sym_kVirtual; sym_kAbstract;
   sym_kDynamic; sym_kOverride; sym_kOverload; sym_kReintroduce; sym_kStdcall; sym_kCdecl;
   sym_kCppdecl; sym_kPascal; sym_kRegister; sym_kMwpascal]; ACTIONS 11645 [sym_kMessage];
   ACTIONS 11647 [sym_kDeprecated]; ACTIONS 1016 [sym_kExperimental; sym_kPlatform;
   sym_kUnimplemented; sym_kCvar]; ACTIONS 11649 [sym_kExport]; ACTIONS 1016 [sym_kFar;
   sym_kNear; sym_kSafecall; sym_kAssembler; sym_kNostackframe; sym_kInterrupt; sym_kNoreturn;
   sym_kIocheck; sym_kLocal; sym_kHardfloat; sym_kSoftfloat; sym_kMs_abi_default;
   sym_kMs_abi_cdecl; sym_kSaveregisters; sym_kSysv_abi_default; sym_kSysv_abi_cdecl;
   sym_kVectorcall; sym_kVarargs; sym_kWinapi]; ACTIONS 11651 [sym_kAlias];
   ACTIONS 9010 [sym_kClass; sym_kConst; sym_kConstructor; sym_kDestructor; sym_kEnd;
   sym_kExports; sym_kFinalization; sym_kFunction; sym_kImplementation; sym_kInitialization];
   ACTIONS 1016 [sym_kInline]; ACTIONS 9010 [sym_kInterface; sym_kLabel; sym_kProcedure;
   sym_kProperty; sym_kResourcestring; sym_kThreadvar; sym_kType; sym_kUses; sym_kVar]].

(** State 2068. *)
Definition ts_parse_table_2068 : parse_row :=
  [STATE 2496 [sym__procAttribute]; STATE 14551 [sym_procAttribute];
   STATE 2112 [aux_sym_declProcFwd_repeat1]; ACTIONS 13520 [anon_sym_LBRACK];
   ACTIONS 7686 [aux_sym_ppUsesBlock_token1]; ACTIONS 3 [sym__space];
   ACTIONS 5 [sym_ppDirective]; ACTIONS 3 [sym_comment]; ACTIONS 1016 [sym_kDefault;
   sym_kNodefault]; ACTIONS 11641 [sym_kDispId]; ACTIONS 7686 [sym_kGeneric; sym_kOperator;
   sym_kPublished]; ACTIONS 7699 [sym_kPublic]; ACTIONS 7686 [sym_kProtected; sym_kPrivate;
   sym_kStrict; sym_kRequired; sym_kOptional]; ACTIONS 1016 [sym_kStatic; sym_kVirtual;
   sym_kAbstract; sym_kDynamic; sym_kOverride; sym_kOverload; sym_kReintroduce; sym_kStdcall;
   sym_kCdecl; sym_kCppdecl; sym_kPascal; sym_kRegister; sym_kMwpascal];
   ACTIONS 11645 [sym_kMessage]; ACTIONS 11647 [sym_kDeprecated];
   ACTIONS 1016 [sym_kExperimental; sym_kPlatform; sym_kUnimplemented; sym_kCvar];
   ACTIONS 11649 [sym_kExport]; ACTIONS 1016 [sym_kFar; sym_kNear; sym_kSafecall; sym_kAssembler;
   sym_kNostackframe; sym_kInterrupt; sym_kNoreturn; sym_kIocheck; sym_kLocal; sym_kHardfloat;
   sym_kSoftfloat; sym_kMs_abi_default; sym_kMs_abi_cdecl; sym_kSaveregisters;
   sym_kSysv_abi_default; sym_kSysv_abi_cdecl; sym_kVectorcall; sym_kVarargs; sym_kWinapi];
   ACTIONS 11651 [sym_kAlias]; ACTIONS 7686 [sym_kCase; sym_kClass; sym_kConst; sym_kConstructor;
   sym_kDestructor; sym_kEnd; sym_kFunction]; ACTIONS 1016 [sym_kInline];
   ACTIONS 7686 [sym_kProcedure; sym_kProperty; sym_kResourcestring; sym_kThreadvar; sym_kType;
   sym_kVar]].

(** State 2069. *)
Definition ts_parse_table_2069 : parse_row :=
  [STATE 2501 [sym__procAttribute]; STATE 15613 [sym_procAttribute];
   STATE 2040 [aux_sym_declProcFwd_repeat1]; ACTIONS 13523 [anon_sym_LBRACK];
   ACTIONS 9066 [aux_sym_ppUsesBlock_token1]; ACTIONS 3 [sym__space];
   ACTIONS 5 [sym_ppDirective]; ACTIONS 3 [sym_comment]; ACTIONS 1016 [sym_kDefault;
   sym_kNodefault]; ACTIONS 11641 [sym_kDispId]; ACTIONS 9066 [sym_kGeneric; sym_kOperator];
   ACTIONS 11643 [sym_kPublic]; ACTIONS 1016 [sym_kStatic; sym_kVirtual; sym_kAbstract;
   sym_kDynamic; sym_kOverride; sym_kOverload; sym_kReintroduce; sym_kStdcall; sym_kCdecl;
   sym_kCppdecl; sym_kPascal; sym_kRegister; sym_kMwpascal]; ACTIONS 11645 [sym_kMessage];
   ACTIONS 11647 [sym_kDeprecated]; ACTIONS 1016 [sym_kExperimental; sym_kPlatform;
   sym_kUnimplemented; sym_kCvar]; ACTIONS 11649 [sym_kExport]; ACTIONS 1016 [sym_kFar;
   sym_kNear; sym_kSafecall; sym_kAssembler; sym_kNostackframe; sym_kInterrupt; sym_kNoreturn;
   sym_kIocheck; sym_kLocal; sym_kHardfloat; sym_kSoftfloat; sym_kMs_abi_default;
   sym_kMs_abi_cdecl; sym_kSaveregisters; sym_kSysv_abi_default; sym_kSysv_abi_cdecl;
   sym_kVectorcall; sym_kVarargs; sym_kWinapi]; ACTIONS 11651 [sym_kAlias];
   ACTIONS 9066 [sym_kClass; sym_kConst; sym_kConstructor; sym_kDestructor; sym_kEnd;
   sym_kExports; sym_kFinalization; sym_kFunction; sym_kImplementation; sym_kInitialization];
   ACTIONS 1016 [sym_kInline]; ACTIONS 9066 [sym_kInterface; sym_kLabel; sym_kProcedure;
   sym_kProperty; sym_kResourcestring; sym_kThreadvar; sym_kType; sym_kUses; sym_kVar]].

(** State 2070. *)
Definition ts_parse_table_2070 : parse_row :=
  [STATE 2501 [sym__procAttribute]; STATE 15613 [sym_procAttribute];
   STATE 2040 [aux_sym_declProcFwd_repeat1]; ACTIONS 13526 [anon_sym_LBRACK];
   ACTIONS 9094 [aux_sym_ppUsesBlock_token1]; ACTIONS 3 [sym__space];
   ACTIONS 5 [sym_ppDirective]; ACTIONS 3 [sym_comment]; ACTIONS 1016 [sym_kDefault;
   sym_kNodefault]; ACTIONS 11641 [sym_kDispId]; ACTIONS 9094 [sym_kGeneric; sym_kOperator];
   ACTIONS 11643 [sym_kPublic]; ACTIONS 1016 [sym_kStatic; sym_kVirtual; sym_kAbstract;
   sym_kDynamic; sym_kOverride; sym_kOverload; sym_kReintroduce; sym_kStdcall; sym_kCdecl;
   sym_kCppdecl; sym_kPascal; sym_kRegister; sym_kMwpascal]; ACTIONS 11645 [sym_kMessage];
   ACTIONS 11647 [sym_kDeprecated]; ACTIONS 1016 [sym_kExperimental; sym_kPlatform;
   sym_kUnimplemented; sym_kCvar]; ACTIONS 11649 [sym_kExport]; ACTIONS 1016 [sym_kFar;
   sym_kNear; sym_kSafecall; sym_kAssembler; sym_kNostackframe; sym_kInterrupt; sym_kNoreturn;
   sym_kIocheck; sym_kLocal; sym_kHardfloat; sym_kSoftfloat; sym_kMs_abi_default;
   sym_kMs_abi_cdecl; sym_kSaveregisters; sym_kSysv_abi_default; sym_kSysv_abi_cdecl;
   sym_kVectorcall; sym_kVarargs; sym_kWinapi]; ACTIONS 11651 [sym_kAlias];
   ACTIONS 9094 [sym_kClass; sym_kConst; sym_kConstructor; sym_kDestructor; sym_kEnd;
   sym_kExports; sym_kFinalization; sym_kFunction; sym_kImplementation; sym_kInitialization];
   ACTIONS 1016 [sym_kInline]; ACTIONS 9094 [sym_kInterface; sym_kLabel; sym_kProcedure;
   sym_kProperty; sym_kResourcestring; sym_kThreadvar; sym_kType; sym_kUses; sym_kVar]].

(** State 2071. *)
Definition ts_parse_table_2071 : parse_row :=
  [STATE 2501 [sym__procAttribute]; STATE 15613 [sym_procAttribute];
   STATE 2100 [aux_sym_declProcFwd_repeat1]; ACTIONS 13529 [anon_sym_LBRACK];
   ACTIONS 9122 [aux_sym_ppUsesBlock_token1]; ACTIONS 3 [sym__space];
   ACTIONS 5 [sym_ppDirective]; ACTIONS 3 [sym_comment]; ACTIONS 1016 [sym_kDefault;
   sym_kNodefault]; ACTIONS 11641 [sym_kDispId]; ACTIONS 9122 [sym_kGeneric; sym_kOperator];
   ACTIONS 11643 [sym_kPublic]; ACTIONS 1016 [sym_kStatic; sym_kVirtual; sym_kAbstract;
   sym_kDynamic; sym_kOverride; sym_kOverload; sym_kReintroduce; sym_kStdcall; sym_kCdecl;
   sym_kCppdecl; sym_kPascal; sym_kRegister; sym_kMwpascal]; ACTIONS 11645 [sym_kMessage];
   ACTIONS 11647 [sym_kDeprecated]; ACTIONS 1016 [sym_kExperimental; sym_kPlatform;
   sym_kUnimplemented; sym_kCvar]; ACTIONS 11649 [sym_kExport]; ACTIONS 1016 [sym_kFar;
   sym_kNear; sym_kSafecall; sym_kAssembler; sym_kNostackframe; sym_kInterrupt; sym_kNoreturn;
   sym_kIocheck; sym_kLocal; sym_kHardfloat; sym_kSoftfloat; sym_kMs_abi_default;
   sym_kMs_abi_cdecl; sym_kSaveregisters; sym_kSysv_abi_default; sym_kSysv_abi_cdecl;
   sym_kVectorcall; sym_kVarargs; sym_kWinapi]; ACTIONS 11651 [sym_kAlias];
   ACTIONS 9122 [sym_kClass; sym_kConst; sym_kConstructor; sym_kDestructor; sym_kEnd;
   sym_kExports; sym_kFinalization; sym_kFunction; sym_kImplementation; sym_kInitialization];
   ACTIONS 1016 [sym_kInline]; ACTIONS 9122 [sym_kInterface; sym_kLabel; sym_kProcedure;
   sym_kProperty; sym_kResourcestring; sym_kThreadvar; sym_kType; sym_kUses; sym_kVar]].

(** State 2072. *)
Definition ts_parse_table_2072 : parse_row :=
  [STATE 13 [sym__ppIf]; STATE 2027 [sym_ppBlock; sym_declVar]; STATE 5128 [sym_rttiAttributes];
   STATE 2027 [aux_sym_declVars_repeat1]; STATE 5213 [aux_sym_declVar_repeat1];
   STATE 4094 [aux_sym_rttiAttributes_repeat2]; ACTIONS 3631 [ts_builtin_sym_end];
   ACTIONS 3633 [anon_sym_LBRACK]; ACTIONS 3638 [aux_sym_ppUsesBlock_token1];
   ACTIONS 3 [sym__space]; ACTIONS 5 [sym_ppDirective]; ACTIONS 3 [sym_comment];
   ACTIONS 13232 [sym_identifier]; ACTIONS 13234 [sym_kDefault; sym_kNodefault; sym_kDispId];
   ACTIONS 3631 [sym_kGeneric]; ACTIONS 13532 [sym_kOperator]; ACTIONS 13234 [sym_kPublic;
   sym_kStatic; sym_kVirtual; sym_kAbstract; sym_kDynamic; sym_kOverride; sym_kOverload;
   sym_kReintroduce; sym_kStdcall; sym_kCdecl; sym_kCppdecl; sym_kPascal; sym_kRegister;
   sym_kMwpascal; sym_kMessage; sym_kDeprecated; sym_kExperimental; sym_kPlatform;
   sym_kUnimplemented; sym_kCvar; sym_kExport; sym_kFar; sym_kNear; sym_kSafecall;
   sym_kAssembler; sym_kNostackframe; sym_kInterrupt; sym_kNoreturn; sym_kIocheck; sym_kLocal;
   sym_kHardfloat; sym_kSoftfloat; sym_kMs_abi_default; sym_kMs_abi_cdecl; sym_kSaveregisters;
   sym_kSysv_abi_default; sym_kSysv_abi_cdecl; sym_kVectorcall; sym_kVarargs; sym_kWinapi;
   sym_kAlias]; ACTIONS 3631 [sym_kBegin; sym_kClass; sym_kConst; sym_kConstructor;
   sym_kDestructor; sym_kExports; sym_kFunction; sym_kLabel; sym_kProcedure; sym_kResourcestring;
   sym_kThreadvar; sym_kType; sym_kUses; sym_kVar]].

(** State 2073. *)
Definition ts_parse_table_2073 : parse_row :=
  [STATE 2501 [sym__procAttribute]; STATE 15613 [sym_procAttribute];
   STATE 2101 [aux_sym_declProcFwd_repeat1]; ACTIONS 13535 [anon_sym_LBRACK];
   ACTIONS 9150 [aux_sym_ppUsesBlock_token1]; ACTIONS 3 [sym__space];
   ACTIONS 5 [sym_ppDirective]; ACTIONS 3 [sym_comment]; ACTIONS 1016 [sym_kDefault;
   sym_kNodefault]; ACTIONS 11641 [sym_kDispId]; ACTIONS 9150 [sym_kGeneric; sym_kOperator];
   ACTIONS 11643 [sym_kPublic]; ACTIONS 1016 [sym_kStatic; sym_kVirtual; sym_kAbstract;
   sym_kDynamic; sym_kOverride; sym_kOverload; sym_kReintroduce; sym_kStdcall; sym_kCdecl;
   sym_kCppdecl; sym_kPascal; sym_kRegister; sym_kMwpascal]; ACTIONS 11645 [sym_kMessage];
   ACTIONS 11647 [sym_kDeprecated]; ACTIONS 1016 [sym_kExperimental; sym_kPlatform;
   sym_kUnimplemented; sym_kCvar]; ACTIONS 11649 [sym_kExport]; ACTIONS 1016 [sym_kFar;
   sym_kNear; sym_kSafecall; sym_kAssembler; sym_kNostackframe; sym_kInterrupt; sym_kNoreturn;
   sym_kIocheck; sym_kLocal; sym_kHardfloat; sym_kSoftfloat; sym_kMs_abi_default;
   sym_kMs_abi_cdecl; sym_kSaveregisters; sym_kSysv_abi_default; sym_kSysv_abi_cdecl;
   sym_kVectorcall; sym_kVarargs; sym_kWinapi]; ACTIONS 11651 [sym_kAlias];
   ACTIONS 9150 [sym_kClass; sym_kConst; sym_kConstructor; sym_kDestructor; sym_kEnd;
   sym_kExports; sym_kFinalization; sym_kFunction; sym_kImplementation; sym_kInitialization];
   ACTIONS 1016 [sym_kInline]; ACTIONS 9150 [sym_kInterface; sym_kLabel; sym_kProcedure;
   sym_kProperty; sym_kResourcestring; sym_kThreadvar; sym_kType; sym_kUses; sym_kVar]].

(** State 2074. *)
Definition ts_parse_table_2074 : parse_row :=
  [STATE 2501 [sym__procAttribute]; STATE 15613 [sym_procAttribute];
   STATE 2040 [aux_sym_declProcFwd_repeat1]; ACTIONS 13538 [anon_sym_LBRACK];
   ACTIONS 9178 [aux_sym_ppUsesBlock_token1]; ACTIONS 3 [sym__space];
   ACTIONS 5 [sym_ppDirective]; ACTIONS 3 [sym_comment]; ACTIONS 1016 [sym_kDefault;
   sym_kNodefault]; ACTIONS 11641 [sym_kDispId]; ACTIONS 9178 [sym_kGeneric; sym_kOperator];
   ACTIONS 11643 [sym_kPublic]; ACTIONS 1016 [sym_kStatic; sym_kVirtual; sym_kAbstract;
   sym_kDynamic; sym_kOverride; sym_kOverload; sym_kReintroduce; sym_kStdcall; sym_kCdecl;
   sym_kCppdecl; sym_kPascal; sym_kRegister; sym_kMwpascal]; ACTIONS 11645 [sym_kMessage];
   ACTIONS 11647 [sym_kDeprecated]; ACTIONS 1016 [sym_kExperimental; sym_kPlatform;
   sym_kUnimplemented; sym_kCvar]; ACTIONS 11649 [sym_kExport]; ACTIONS 1016 [sym_kFar;
   sym_kNear; sym_kSafecall; sym_kAssembler; sym_kNostackframe; sym_kInterrupt; sym_kNoreturn;
   sym_kIocheck; sym_kLocal; sym_kHardfloat; sym_kSoftfloat; sym_kMs_abi_default;
   sym_kMs_abi_cdecl; sym_kSaveregisters; sym_kSysv_abi_default; sym_kSysv_abi_cdecl;
   sym_kVectorcall; sym_kVarargs; sym_kWinapi]; ACTIONS 11651 [sym_kAlias];
   ACTIONS 9178 [sym_kClass; sym_kConst; sym_kConstructor; sym_kDestructor; sym_kEnd;
   sym_kExports; sym_kFinalization; sym_kFunction; sym_kImplementation; sym_kInitialization];
   ACTIONS 1016 [sym_kInline]; ACTIONS 9178 [sym_kInterface; sym_kLabel; sym_kProcedure;
   sym_kProperty; sym_kResourcestring; sym_kThreadvar; sym_kType; sym_kUses; sym_kVar]].

(** State 2075. *)
Definition ts_parse_table_2075 : parse_row :=
  [STATE 13 [sym__ppIf]; STATE 2036 [sym_ppBlock; sym_declVar]; STATE 5128 [sym_rttiAttributes];
   STATE 2036 [aux_sym_declVars_repeat1]; STATE 5213 [aux_sym_declVar_repeat1];
   STATE 4094 [aux_sym_rttiAttributes_repeat2]; ACTIONS 3631 [ts_builtin_sym_end];
   ACTIONS 3633 [anon_sym_LBRACK]; ACTIONS 3638 [aux_sym_ppUsesBlock_token1];
   ACTIONS 3 [sym__space]; ACTIONS 5 [sym_ppDirective]; ACTIONS 3 [sym_comment];
   ACTIONS 13232 [sym_identifier]; ACTIONS 13234 [sym_kDefault; sym_kNodefault; sym_kDispId];
   ACTIONS 3631 [sym_kGeneric]; ACTIONS 13532 [sym_kOperator]; ACTIONS 13234 [sym_kPublic;
   sym_kStatic; sym_kVirtual; sym_kAbstract; sym_kDynamic; sym_kOverride; sym_kOverload;
   sym_kReintroduce; sym_kStdcall; sym_kCdecl; sym_kCppdecl; sym_kPascal; sym_kRegister;
   sym_kMwpascal; sym_kMessage; sym_kDeprecated; sym_kExperimental; sym_kPlatform;
   sym_kUnimplemented; sym_kCvar; sym_kExport; sym_kFar; sym_kNear; sym_kSafecall;
   sym_kAssembler; sym_kNostackframe; sym_kInterrupt; sym_kNoreturn; sym_kIocheck; sym_kLocal;
   sym_kHardfloat; sym_kSoftfloat; sym_kMs_abi_default; sym_kMs_abi_cdecl; sym_kSaveregisters;
   sym_kSysv_abi_default; sym_kSysv_abi_cdecl; sym_kVectorcall; sym_kVarargs; sym_kWinapi;
   sym_kAlias]; ACTIONS 3631 [sym_kBegin; sym_kClass; sym_kConst; sym_kConstructor;
   sym_kDestructor; sym_kExports; sym_kFunction; sym_kLabel; sym_kProcedure; sym_kResourcestring;
   sym_kThreadvar; sym_kType; sym_kUses; sym_kVar]].

(** State 2076. *)
Definition ts_parse_table_2076 : parse_row :=
  [STATE 2501 [sym__procAttribute]; STATE 15613 [sym_procAttribute];
   STATE 2040 [aux_sym_declProcFwd_repeat1]; ACTIONS 13541 [anon_sym_LBRACK];
   ACTIONS 9206 [aux_sym_ppUsesBlock_token1]; ACTIONS 3 [sym__space];
   ACTIONS 5 [sym_ppDirective]; ACTIONS 3 [sym_comment]; ACTIONS 1016 [sym_kDefault;
   sym_kNodefault]; ACTIONS 11641 [sym_kDispId]; ACTIONS 9206 [sym_kGeneric; sym_kOperator];
   ACTIONS 11643 [sym_kPublic]; ACTIONS 1016 [sym_kStatic; sym_kVirtual; sym_kAbstract;
   sym_kDynamic; sym_kOverride; sym_kOverload; sym_kReintroduce; sym_kStdcall; sym_kCdecl;
   sym_kCppdecl; sym_kPascal; sym_kRegister; sym_kMwpascal]; ACTIONS 11645 [sym_kMessage];
   ACTIONS 11647 [sym_kDeprecated]; ACTIONS 1016 [sym_kExperimental; sym_kPlatform;
   sym_kUnimplemented; sym_kCvar]; ACTIONS 11649 [sym_kExport]; ACTIONS 1016 [sym_kFar;
   sym_kNear; sym_kSafecall; sym_kAssembler; sym_kNostackframe; sym_kInterrupt; sym_kNoreturn;
   sym_kIocheck; sym_kLocal; sym_kHardfloat; sym_kSoftfloat; sym_kMs_abi_default;
   sym_kMs_abi_cdecl; sym_kSaveregisters; sym_kSysv_abi_default; sym_kSysv_abi_cdecl;
   sym_kVectorcall; sym_kVarargs; sym_kWinapi]; ACTIONS 11651 [sym_kAlias];
   ACTIONS 9206 [sym_kClass; sym_kConst; sym_kConstructor; sym_kDestructor; sym_kEnd;
   sym_kExports; sym_kFinalization; sym_kFunction; sym_kImplementation; sym_kInitialization];
   ACTIONS 1016 [sym_kInline]; ACTIONS 9206 [sym_kInterface; sym_kLabel; sym_kProcedure;
   sym_kProperty; sym_kResourcestring; sym_kThreadvar; sym_kType; sym_kUses; sym_kVar]].

(** State 2077. *)
Definition ts_parse_table_2077 : parse_row :=
  [STATE 2501 [sym__procAttribute]; STATE 15613 [sym_procAttribute];
   STATE 2109 [aux_sym_declProcFwd_repeat1]; ACTIONS 13544 [anon_sym_LBRACK];
   ACTIONS 9234 [aux_sym_ppUsesBlock_token1]; ACTIONS 3 [sym__space];
   ACTIONS 5 [sym_ppDirective]; ACTIONS 3 [sym_comment]; ACTIONS 1016 [sym_kDefault;
   sym_kNodefault]; ACTIONS 11641 [sym_kDispId]; ACTIONS 9234 [sym_kGeneric; sym_kOperator];
   ACTIONS 11643 [sym_kPublic]; ACTIONS 1016 [sym_kStatic; sym_kVirtual; sym_kAbstract;
   sym_kDynamic; sym_kOverride; sym_kOverload; sym_kReintroduce; sym_kStdcall; sym_kCdecl;
   sym_kCppdecl; sym_kPascal; sym_kRegister; sym_kMwpascal]; ACTIONS 11645 [sym_kMessage];
   ACTIONS 11647 [sym_kDeprecated]; ACTIONS 1016 [sym_kExperimental; sym_kPlatform;
   sym_kUnimplemented; sym_kCvar]; ACTIONS 11649 [sym_kExport]; ACTIONS 1016 [sym_kFar;
   sym_kNear; sym_kSafecall; sym_kAssembler; sym_kNostackframe; sym_kInterrupt; sym_kNoreturn;
   sym_kIocheck; sym_kLocal; sym_kHardfloat; sym_kSoftfloat; sym_kMs_abi_default;
   sym_kMs_abi_cdecl; sym_kSaveregisters; sym_kSysv_abi_default; sym_kSysv_abi_cdecl;
   sym_kVectorcall; sym_kVarargs; sym_kWinapi]; ACTIONS 11651 [sym_kAlias];
   ACTIONS 9234 [sym_kClass; sym_kConst; sym_kConstructor; sym_kDestructor; sym_kEnd;
   sym_kExports; sym_kFinalization; sym_kFunction; sym_kImplementation; sym_kInitialization];
   ACTIONS 1016 [sym_kInline]; ACTIONS 9234 [sym_kInterface; sym_kLabel; sym_kProcedure;
   sym_kProperty; sym_kResourcestring; sym_kThreadvar; sym_kType; sym_kUses; sym_kVar]].

(** State 2078. *)
Definition ts_parse_table_2078 : parse_row :=
  [STATE 2501 [sym__procAttribute]; STATE 15613 [sym_procAttribute];
   STATE 2117 [aux_sym_declProcFwd_repeat1]; ACTIONS 13547 [anon_sym_LBRACK];
   ACTIONS 9262 [aux_sym_ppUsesBlock_token1]; ACTIONS 3 [sym__space];
   ACTIONS 5 [sym_ppDirective]; ACTIONS 3 [sym_comment]; ACTIONS 1016 [sym_kDefault;
   sym_kNodefault]; ACTIONS 11641 [sym_kDispId]; ACTIONS 9262 [sym_kGeneric; sym_kOperator];
   ACTIONS 11643 [sym_kPublic]; ACTIONS 1016 [sym_kStatic; sym_kVirtual; sym_kAbstract;
   sym_kDynamic; sym_kOverride; sym_kOverload; sym_kReintroduce; sym_kStdcall; sym_kCdecl;
   sym_kCppdecl; sym_kPascal; sym_kRegister; sym_kMwpascal]; ACTIONS 11645 [sym_kMessage];
   ACTIONS 11647 [sym_kDeprecated]; ACTIONS 1016 [sym_kExperimental; sym_kPlatform;
   sym_kUnimplemented; sym_kCvar]; ACTIONS 11649 [sym_kExport]; ACTIONS 1016 [sym_kFar;
   sym_kNear; sym_kSafecall; sym_kAssembler; sym_kNostackframe; sym_kInterrupt; sym_kNoreturn;
   sym_kIocheck; sym_kLocal; sym_kHardfloat; sym_kSoftfloat; sym_kMs_abi_default;
   sym_kMs_abi_cdecl; sym_kSaveregisters; sym_kSysv_abi_default; sym_kSysv_abi_cdecl;
   sym_kVectorcall; sym_kVarargs; sym_kWinapi]; ACTIONS 11651 [sym_kAlias];
   ACTIONS 9262 [sym_kClass; sym_kConst; sym_kConstructor; sym_kDestructor; sym_kEnd;
   sym_kExports; sym_kFinalization; sym_kFunction; sym_kImplementation; sym_kInitialization];
   ACTIONS 1016 [sym_kInline]; ACTIONS 9262 [sym_kInterface; sym_kLabel; sym_kProcedure;
   sym_kProperty; sym_kResourcestring; sym_kThreadvar; sym_kType; sym_kUses; sym_kVar]].

(** State 2079. *)
Definition ts_parse_table_2079 : parse_row :=
  [STATE 2856 [sym__ppIf]; STATE 2638 [sym__procAttributeNoExt];
   STATE 2639 [sym__procAttributesPp]; STATE 15800 [sym_procAttribute];
   STATE 2114 [aux_sym__declProc_repeat1]; ACTIONS 13550 [anon_sym_LBRACK];
   ACTIONS 1025 [aux_sym_ppUsesBlock_token1]; ACTIONS 3 [sym__space];
   ACTIONS 5 [sym_ppDirective]; ACTIONS 3 [sym_comment]; ACTIONS 1016 [sym_kDefault;
   sym_kNodefault]; ACTIONS 11641 [sym_kDispId]; ACTIONS 1018 [sym_kGeneric; sym_kOperator];
   ACTIONS 11643 [sym_kPublic]; ACTIONS 1018 [sym_kForward]; ACTIONS 1016 [sym_kStatic;
   sym_kVirtual; sym_kAbstract; sym_kDynamic; sym_kOverride; sym_kOverload; sym_kReintroduce;
   sym_kStdcall; sym_kCdecl; sym_kCppdecl; sym_kPascal; sym_kRegister; sym_kMwpascal];
   ACTIONS 1018 [sym_kExternal]; ACTIONS 11645 [sym_kMessage]; ACTIONS 11647 [sym_kDeprecated];
   ACTIONS 1016 [sym_kExperimental; sym_kPlatform; sym_kUnimplemented; sym_kCvar];
   ACTIONS 11649 [sym_kExport]; ACTIONS 1016 [sym_kFar; sym_kNear; sym_kSafecall; sym_kAssembler;
   sym_kNostackframe; sym_kInterrupt; sym_kNoreturn; sym_kIocheck; sym_kLocal; sym_kHardfloat;
   sym_kSoftfloat; sym_kMs_abi_default; sym_kMs_abi_cdecl; sym_kSaveregisters;
   sym_kSysv_abi_default; sym_kSysv_abi_cdecl; sym_kVectorcall; sym_kVarargs; sym_kWinapi];
   ACTIONS 11651 [sym_kAlias]; ACTIONS 1018 [sym_kAsm; sym_kBegin; sym_kClass; sym_kConst;
   sym_kConstructor; sym_kDestructor; sym_kExports; sym_kFunction]; ACTIONS 1016 [sym_kInline];
   ACTIONS 1018 [sym_kLabel; sym_kProcedure; sym_kResourcestring; sym_kThreadvar; sym_kType;
   sym_kUses; sym_kVar]].

(** State 2080. *)
Definition ts_parse_table_2080 : parse_row :=
  [STATE 2560 [sym__procAttribute]; STATE 15931 [sym_procAttribute];
   STATE 2080 [aux_sym_declProcFwd_repeat1]; ACTIONS 13553 [anon_sym_LBRACK];
   ACTIONS 8588 [aux_sym_ppUsesBlock_token1]; ACTIONS 3 [sym__space];
   ACTIONS 5 [sym_ppDirective]; ACTIONS 3 [sym_comment]; ACTIONS 8595 [sym_kDefault;
   sym_kNodefault]; ACTIONS 8598 [sym_kDispId]; ACTIONS 8588 [sym_kGeneric; sym_kOperator];
   ACTIONS 8601 [sym_kPublic]; ACTIONS 8595 [sym_kStatic; sym_kVirtual; sym_kAbstract;
   sym_kDynamic; sym_kOverride; sym_kOverload; sym_kReintroduce; sym_kStdcall; sym_kCdecl;
   sym_kCppdecl; sym_kPascal; sym_kRegister; sym_kMwpascal]; ACTIONS 8604 [sym_kMessage];
   ACTIONS 8607 [sym_kDeprecated]; ACTIONS 8595 [sym_kExperimental; sym_kPlatform;
   sym_kUnimplemented; sym_kCvar]; ACTIONS 8610 [sym_kExport]; ACTIONS 8595 [sym_kFar; sym_kNear;
   sym_kSafecall; sym_kAssembler; sym_kNostackframe; sym_kInterrupt; sym_kNoreturn; sym_kIocheck;
   sym_kLocal; sym_kHardfloat; sym_kSoftfloat; sym_kMs_abi_default; sym_kMs_abi_cdecl;
   sym_kSaveregisters; sym_kSysv_abi_default; sym_kSysv_abi_cdecl; sym_kVectorcall; sym_kVarargs;
   sym_kWinapi]; ACTIONS 8613 [sym_kAlias]; ACTIONS 8588 [sym_kBegin; sym_kClass; sym_kConst;
   sym_kConstructor; sym_kDestructor; sym_kEnd; sym_kExports; sym_kFinalization; sym_kFunction;
   sym_kImplementation; sym_kInitialization]; ACTIONS 8595 [sym_kInline];
   ACTIONS 8588 [sym_kInterface; sym_kLabel; sym_kProcedure; sym_kResourcestring; sym_kThreadvar;
   sym_kType; sym_kUses; sym_kVar]].

(** State 2081. *)
Definition ts_parse_table_2081 : parse_row :=
  [STATE 2856 [sym__ppIf]; STATE 2638 [sym__procAttributeNoExt];
   STATE 2639 [sym__procAttributesPp]; STATE 15800 [sym_procAttribute];
   STATE 2060 [aux_sym__declProc_repeat1]; ACTIONS 13556 [anon_sym_LBRACK];
   ACTIONS 2486 [aux_sym_ppUsesBlock_token1]; ACTIONS 3 [sym__space];
   ACTIONS 5 [sym_ppDirective]; ACTIONS 3 [sym_comment]; ACTIONS 1016 [sym_kDefault;
   sym_kNodefault]; ACTIONS 11641 [sym_kDispId]; ACTIONS 2479 [sym_kGeneric; sym_kOperator];
   ACTIONS 11643 [sym_kPublic]; ACTIONS 2479 [sym_kForward]; ACTIONS 1016 [sym_kStatic;
   sym_kVirtual; sym_kAbstract; sym_kDynamic; sym_kOverride; sym_kOverload; sym_kReintroduce;
   sym_kStdcall; sym_kCdecl; sym_kCppdecl; sym_kPascal; sym_kRegister; sym_kMwpascal];
   ACTIONS 2479 [sym_kExternal]; ACTIONS 11645 [sym_kMessage]; ACTIONS 11647 [sym_kDeprecated];
   ACTIONS 1016 [sym_kExperimental; sym_kPlatform; sym_kUnimplemented; sym_kCvar];
   ACTIONS 11649 [sym_kExport]; ACTIONS 1016 [sym_kFar; sym_kNear; sym_kSafecall; sym_kAssembler;
   sym_kNostackframe; sym_kInterrupt; sym_kNoreturn; sym_kIocheck; sym_kLocal; sym_kHardfloat;
   sym_kSoftfloat; sym_kMs_abi_default; sym_kMs_abi_cdecl; sym_kSaveregisters;
   sym_kSysv_abi_default; sym_kSysv_abi_cdecl; sym_kVectorcall; sym_kVarargs; sym_kWinapi];
   ACTIONS 11651 [sym_kAlias]; ACTIONS 2479 [sym_kAsm; sym_kBegin; sym_kClass; sym_kConst;
   sym_kConstructor; sym_kDestructor; sym_kExports; sym_kFunction]; ACTIONS 1016 [sym_kInline];
   ACTIONS 2479 [sym_kLabel; sym_kProcedure; sym_kResourcestring; sym_kThreadvar; sym_kType;
   sym_kUses; sym_kVar]].

(** State 2082. *)
Definition ts_parse_table_2082 : parse_row :=
  [STATE 2856 [sym__ppIf]; STATE 2638 [sym__procAttributeNoExt];
   STATE 2639 [sym__procAttributesPp]; STATE 15800 [sym_procAttribute];
   STATE 2114 [aux_sym__declProc_repeat1]; ACTIONS 13559 [anon_sym_LBRACK];
   ACTIONS 2517 [aux_sym_ppUsesBlock_token1]; ACTIONS 3 [sym__space];
   ACTIONS 5 [sym_ppDirective]; ACTIONS 3 [sym_comment]; ACTIONS 1016 [sym_kDefault;
   sym_kNodefault]; ACTIONS 11641 [sym_kDispId]; ACTIONS 2510 [sym_kGeneric; sym_kOperator];
   ACTIONS 11643 [sym_kPublic]; ACTIONS 2510 [sym_kForward]; ACTIONS 1016 [sym_kStatic;
   sym_kVirtual; sym_kAbstract; sym_kDynamic; sym_kOverride; sym_kOverload; sym_kReintroduce;
   sym_kStdcall; sym_kCdecl; sym_kCppdecl; sym_kPascal; sym_kRegister; sym_kMwpascal];
   ACTIONS 2510 [sym_kExternal]; ACTIONS 11645 [sym_kMessage]; ACTIONS 11647 [sym_kDeprecated];
   ACTIONS 1016 [sym_kExperimental; sym_kPlatform; sym_kUnimplemented; sym_kCvar];
   ACTIONS 11649 [sym_kExport]; ACTIONS 1016 [sym_kFar; sym_kNear; sym_kSafecall; sym_kAssembler;
   sym_kNostackframe; sym_kInterrupt; sym_kNoreturn; sym_kIocheck; sym_kLocal; sym_kHardfloat;
   sym_kSoftfloat; sym_kMs_abi_default; sym_kMs_abi_cdecl; sym_kSaveregisters;
   sym_kSysv_abi_default; sym_kSysv_abi_cdecl; sym_kVectorcall; sym_kVarargs; sym_kWinapi];
   ACTIONS 11651 [sym_kAlias]; ACTIONS 2510 [sym_kAsm; sym_kBegin; sym_kClass; sym_kConst;
   sym_kConstructor; sym_kDestructor; sym_kExports; sym_kFunction]; ACTIONS 1016 [sym_kInline];
   ACTIONS 2510 [sym_kLabel; sym_kProcedure; sym_kResourcestring; sym_kThreadvar; sym_kType;
   sym_kUses; sym_kVar]].

(** State 2083. *)
Definition ts_parse_table_2083 : parse_row :=
  [STATE 2856 [sym__ppIf]; STATE 2638 [sym__procAttributeNoExt];
   STATE 2639 [sym__procAttributesPp]; STATE 15800 [sym_procAttribute];
   STATE 2114 [aux_sym__declProc_repeat1]; ACTIONS 13562 [anon_sym_LBRACK];
   ACTIONS 2550 [aux_sym_ppUsesBlock_token1]; ACTIONS 3 [sym__space];
   ACTIONS 5 [sym_ppDirective]; ACTIONS 3 [sym_comment]; ACTIONS 1016 [sym_kDefault;
   sym_kNodefault]; ACTIONS 11641 [sym_kDispId]; ACTIONS 2543 [sym_kGeneric; sym_kOperator];
   ACTIONS 11643 [sym_kPublic]; ACTIONS 2543 [sym_kForward]; ACTIONS 1016 [sym_kStatic;
   sym_kVirtual; sym_kAbstract; sym_kDynamic; sym_kOverride; sym_kOverload; sym_kReintroduce;
   sym_kStdcall; sym_kCdecl; sym_kCppdecl; sym_kPascal; sym_kRegister; sym_kMwpascal];
   ACTIONS 2543 [sym_kExternal]; ACTIONS 11645 [sym_kMessage]; ACTIONS 11647 [sym_kDeprecated];
   ACTIONS 1016 [sym_kExperimental; sym_kPlatform; sym_kUnimplemented; sym_kCvar];
   ACTIONS 11649 [sym_kExport]; ACTIONS 1016 [sym_kFar; sym_kNear; sym_kSafecall; sym_kAssembler;
   sym_kNostackframe; sym_kInterrupt; sym_kNoreturn; sym_kIocheck; sym_kLocal; sym_kHardfloat;
   sym_kSoftfloat; sym_kMs_abi_default; sym_kMs_abi_cdecl; sym_kSaveregisters;
   sym_kSysv_abi_default; sym_kSysv_abi_cdecl; sym_kVectorcall; sym_kVarargs; sym_kWinapi];
   ACTIONS 11651 [sym_kAlias]; ACTIONS 2543 [sym_kAsm; sym_kBegin; sym_kClass; sym_kConst;
   sym_kConstructor; sym_kDestructor; sym_kExports; sym_kFunction]; ACTIONS 1016 [sym_kInline];
   ACTIONS 2543 [sym_kLabel; sym_kProcedure; sym_kResourcestring; sym_kThreadvar; sym_kType;
   sym_kUses; sym_kVar]].

(** State 2084. *)
Definition ts_parse_table_2084 : parse_row :=
  [STATE 2501 [sym__procAttribute]; STATE 15613 [sym_procAttribute];
   STATE 2040 [aux_sym_declProcFwd_repeat1]; ACTIONS 13565 [anon_sym_LBRACK];
   ACTIONS 9290 [aux_sym_ppUsesBlock_token1]; ACTIONS 3 [sym__space];
   ACTIONS 5 [sym_ppDirective]; ACTIONS 3 [sym_comment]; ACTIONS 1016 [sym_kDefault;
   sym_kNodefault]; ACTIONS 11641 [sym_kDispId]; ACTIONS 9290 [sym_kGeneric; sym_kOperator];
   ACTIONS 11643 [sym_kPublic]; ACTIONS 1016 [sym_kStatic; sym_kVirtual; sym_kAbstract;
   sym_kDynamic; sym_kOverride; sym_kOverload; sym_kReintroduce; sym_kStdcall; sym_kCdecl;
   sym_kCppdecl; sym_kPascal; sym_kRegister; sym_kMwpascal]; ACTIONS 11645 [sym_kMessage];
   ACTIONS 11647 [sym_kDeprecated]; ACTIONS 1016 [sym_kExperimental; sym_kPlatform;
   sym_kUnimplemented; sym_kCvar]; ACTIONS 11649 [sym_kExport]; ACTIONS 1016 [sym_kFar;
   sym_kNear; sym_kSafecall; sym_kAssembler; sym_kNostackframe; sym_kInterrupt; sym_kNoreturn;
   sym_kIocheck; sym_kLocal; sym_kHardfloat; sym_kSoftfloat; sym_kMs_abi_default;
   sym_kMs_abi_cdecl; sym_kSaveregisters; sym_kSysv_abi_default; sym_kSysv_abi_cdecl;
   sym_kVectorcall; sym_kVarargs; sym_kWinapi]; ACTIONS 11651 [sym_kAlias];
   ACTIONS 9290 [sym_kClass; sym_kConst; sym_kConstructor; sym_kDestructor; sym_kEnd;
   sym_kExports; sym_kFinalization; sym_kFunction; sym_kImplementation; sym_kInitialization];
   ACTIONS 1016 [sym_kInline]; ACTIONS 9290 [sym_kInterface; sym_kLabel; sym_kProcedure;
   sym_kProperty; sym_kResourcestring; sym_kThreadvar; sym_kType; sym_kUses; sym_kVar]].

(** State 2085. *)
Definition ts_parse_table_2085 : parse_row :=
  [STATE 2496 [sym__procAttribute]; STATE 14551 [sym_procAttribute];
   STATE 2112 [aux_sym_declProcFwd_repeat1]; ACTIONS 13568 [anon_sym_LBRACK];
   ACTIONS 8616 [aux_sym_ppUsesBlock_token1]; ACTIONS 3 [sym__space];
   ACTIONS 5 [sym_ppDirective]; ACTIONS 3 [sym_comment]; ACTIONS 1016 [sym_kDefault;
   sym_kNodefault]; ACTIONS 11641 [sym_kDispId]; ACTIONS 8616 [sym_kGeneric; sym_kOperator;
   sym_kPublished]; ACTIONS 8629 [sym_kPublic]; ACTIONS 8616 [sym_kProtected; sym_kPrivate;
   sym_kStrict; sym_kRequired; sym_kOptional]; ACTIONS 1016 [sym_kStatic; sym_kVirtual;
   sym_kAbstract; sym_kDynamic; sym_kOverride; sym_kOverload; sym_kReintroduce; sym_kStdcall;
   sym_kCdecl; sym_kCppdecl; sym_kPascal; sym_kRegister; sym_kMwpascal];
   ACTIONS 11645 [sym_kMessage]; ACTIONS 11647 [sym_kDeprecated];
   ACTIONS 1016 [sym_kExperimental; sym_kPlatform; sym_kUnimplemented; sym_kCvar];
   ACTIONS 11649 [sym_kExport]; ACTIONS 1016 [sym_kFar; sym_kNear; sym_kSafecall; sym_kAssembler;
   sym_kNostackframe; sym_kInterrupt; sym_kNoreturn; sym_kIocheck; sym_kLocal; sym_kHardfloat;
   sym_kSoftfloat; sym_kMs_abi_default; sym_kMs_abi_cdecl; sym_kSaveregisters;
   sym_kSysv_abi_default; sym_kSysv_abi_cdecl; sym_kVectorcall; sym_kVarargs; sym_kWinapi];
   ACTIONS 11651 [sym_kAlias]; ACTIONS 8616 [sym_kCase; sym_kClass; sym_kConst; sym_kConstructor;
   sym_kDestructor; sym_kEnd; sym_kFunction]; ACTIONS 1016 [sym_kInline];
   ACTIONS 8616 [sym_kProcedure; sym_kProperty; sym_kResourcestring; sym_kThreadvar; sym_kType;
   sym_kVar]].

(** State 2086. *)
Definition ts_parse_table_2086 : parse_row :=
  [STATE 2856 [sym__ppIf]; STATE 2638 [sym__procAttributeNoExt];
   STATE 2639 [sym__procAttributesPp]; STATE 15800 [sym_procAttribute];
   STATE 2114 [aux_sym__declProc_repeat1]; ACTIONS 13571 [anon_sym_LBRACK];
   ACTIONS 3107 [aux_sym_ppUsesBlock_token1]; ACTIONS 3 [sym__space];
   ACTIONS 5 [sym_ppDirective]; ACTIONS 3 [sym_comment]; ACTIONS 1016 [sym_kDefault;
   sym_kNodefault]; ACTIONS 11641 [sym_kDispId]; ACTIONS 3100 [sym_kGeneric; sym_kOperator];
   ACTIONS 11643 [sym_kPublic]; ACTIONS 3100 [sym_kForward]; ACTIONS 1016 [sym_kStatic;
   sym_kVirtual; sym_kAbstract; sym_kDynamic; sym_kOverride; sym_kOverload; sym_kReintroduce;
   sym_kStdcall; sym_kCdecl; sym_kCppdecl; sym_kPascal; sym_kRegister; sym_kMwpascal];
   ACTIONS 3100 [sym_kExternal]; ACTIONS 11645 [sym_kMessage]; ACTIONS 11647 [sym_kDeprecated];
   ACTIONS 1016 [sym_kExperimental; sym_kPlatform; sym_kUnimplemented; sym_kCvar];
   ACTIONS 11649 [sym_kExport]; ACTIONS 1016 [sym_kFar; sym_kNear; sym_kSafecall; sym_kAssembler;
   sym_kNostackframe; sym_kInterrupt; sym_kNoreturn; sym_kIocheck; sym_kLocal; sym_kHardfloat;
   sym_kSoftfloat; sym_kMs_abi_default; sym_kMs_abi_cdecl; sym_kSaveregisters;
   sym_kSysv_abi_default; sym_kSysv_abi_cdecl; sym_kVectorcall; sym_kVarargs; sym_kWinapi];
   ACTIONS 11651 [sym_kAlias]; ACTIONS 3100 [sym_kAsm; sym_kBegin; sym_kClass; sym_kConst;
   sym_kConstructor; sym_kDestructor; sym_kExports; sym_kFunction]; ACTIONS 1016 [sym_kInline];
   ACTIONS 3100 [sym_kLabel; sym_kProcedure; sym_kResourcestring; sym_kThreadvar; sym_kType;
   sym_kUses; sym_kVar]].

(** State 2087. *)
Definition ts_parse_table_2087 : parse_row :=
  [STATE 2496 [sym__procAttribute]; STATE 14551 [sym_procAttribute];
   STATE 2015 [aux_sym_declProcFwd_repeat1]; ACTIONS 13574 [anon_sym_LBRACK];
   ACTIONS 8644 [aux_sym_ppUsesBlock_token1]; ACTIONS 3 [sym__space];
   ACTIONS 5 [sym_ppDirective]; ACTIONS 3 [sym_comment]; ACTIONS 1016 [sym_kDefault;
   sym_kNodefault]; ACTIONS 11641 [sym_kDispId]; ACTIONS 8644 [sym_kGeneric; sym_kOperator;
   sym_kPublished]; ACTIONS 8657 [sym_kPublic]; ACTIONS 8644 [sym_kProtected; sym_kPrivate;
   sym_kStrict; sym_kRequired; sym_kOptional]; ACTIONS 1016 [sym_kStatic; sym_kVirtual;
   sym_kAbstract; sym_kDynamic; sym_kOverride; sym_kOverload; sym_kReintroduce; sym_kStdcall;
   sym_kCdecl; sym_kCppdecl; sym_kPascal; sym_kRegister; sym_kMwpascal];
   ACTIONS 11645 [sym_kMessage]; ACTIONS 11647 [sym_kDeprecated];
   ACTIONS 1016 [sym_kExperimental; sym_kPlatform; sym_kUnimplemented; sym_kCvar];
   ACTIONS 11649 [sym_kExport]; ACTIONS 1016 [sym_kFar; sym_kNear; sym_kSafecall; sym_kAssembler;
   sym_kNostackframe; sym_kInterrupt; sym_kNoreturn; sym_kIocheck; sym_kLocal; sym_kHardfloat;
   sym_kSoftfloat; sym_kMs_abi_default; sym_kMs_abi_cdecl; sym_kSaveregisters;
   sym_kSysv_abi_default; sym_kSysv_abi_cdecl; sym_kVectorcall; sym_kVarargs; sym_kWinapi];
   ACTIONS 11651 [sym_kAlias]; ACTIONS 8644 [sym_kCase; sym_kClass; sym_kConst; sym_kConstructor;
   sym_kDestructor; sym_kEnd; sym_kFunction]; ACTIONS 1016 [sym_kInline];
   ACTIONS 8644 [sym_kProcedure; sym_kProperty; sym_kResourcestring; sym_kThreadvar; sym_kType;
   sym_kVar]].

(** State 2088. *)
Definition ts_parse_table_2088 : parse_row :=
  [STATE 2496 [sym__procAttribute]; STATE 14551 [sym_procAttribute];
   STATE 2018 [aux_sym_declProcFwd_repeat1]; ACTIONS 13577 [anon_sym_LBRACK];
   ACTIONS 8672 [aux_sym_ppUsesBlock_token1]; ACTIONS 3 [sym__space];
   ACTIONS 5 [sym_ppDirective]; ACTIONS 3 [sym_comment]; ACTIONS 1016 [sym_kDefault;
   sym_kNodefault]; ACTIONS 11641 [sym_kDispId]; ACTIONS 8672 [sym_kGeneric; sym_kOperator;
   sym_kPublished]; ACTIONS 8685 [sym_kPublic]; ACTIONS 8672 [sym_kProtected; sym_kPrivate;
   sym_kStrict; sym_kRequired; sym_kOptional]; ACTIONS 1016 [sym_kStatic; sym_kVirtual;
   sym_kAbstract; sym_kDynamic; sym_kOverride; sym_kOverload; sym_kReintroduce; sym_kStdcall;
   sym_kCdecl; sym_kCppdecl; sym_kPascal; sym_kRegister; sym_kMwpascal];
   ACTIONS 11645 [sym_kMessage]; ACTIONS 11647 [sym_kDeprecated];
   ACTIONS 1016 [sym_kExperimental; sym_kPlatform; sym_kUnimplemented; sym_kCvar];
   ACTIONS 11649 [sym_kExport]; ACTIONS 1016 [sym_kFar; sym_kNear; sym_kSafecall; sym_kAssembler;
   sym_kNostackframe; sym_kInterrupt; sym_kNoreturn; sym_kIocheck; sym_kLocal; sym_kHardfloat;
   sym_kSoftfloat; sym_kMs_abi_default; sym_kMs_abi_cdecl; sym_kSaveregisters;
   sym_kSysv_abi_default; sym_kSysv_abi_cdecl; sym_kVectorcall; sym_kVarargs; sym_kWinapi];
   ACTIONS 11651 [sym_kAlias]; ACTIONS 8672 [sym_kCase; sym_kClass; sym_kConst; sym_kConstructor;
   sym_kDestructor; sym_kEnd; sym_kFunction]; ACTIONS 1016 [sym_kInline];
   ACTIONS 8672 [sym_kProcedure; sym_kProperty; sym_kResourcestring; sym_kThreadvar; sym_kType;
   sym_kVar]].

(** State 2089. *)
Definition ts_parse_table_2089 : parse_row :=
  [STATE 2501 [sym__procAttribute]; STATE 15613 [sym_procAttribute];
   STATE 2118 [aux_sym_declProcFwd_repeat1]; ACTIONS 13580 [anon_sym_LBRACK];
   ACTIONS 9464 [aux_sym_ppUsesBlock_token1]; ACTIONS 3 [sym__space];
   ACTIONS 5 [sym_ppDirective]; ACTIONS 3 [sym_comment]; ACTIONS 1016 [sym_kDefault;
   sym_kNodefault]; ACTIONS 11641 [sym_kDispId]; ACTIONS 9464 [sym_kGeneric; sym_kOperator];
   ACTIONS 11643 [sym_kPublic]; ACTIONS 1016 [sym_kStatic; sym_kVirtual; sym_kAbstract;
   sym_kDynamic; sym_kOverride; sym_kOverload; sym_kReintroduce; sym_kStdcall; sym_kCdecl;
   sym_kCppdecl; sym_kPascal; sym_kRegister; sym_kMwpascal]; ACTIONS 11645 [sym_kMessage];
   ACTIONS 11647 [sym_kDeprecated]; ACTIONS 1016 [sym_kExperimental; sym_kPlatform;
   sym_kUnimplemented; sym_kCvar]; ACTIONS 11649 [sym_kExport]; ACTIONS 1016 [sym_kFar;
   sym_kNear; sym_kSafecall; sym_kAssembler; sym_kNostackframe; sym_kInterrupt; sym_kNoreturn;
   sym_kIocheck; sym_kLocal; sym_kHardfloat; sym_kSoftfloat; sym_kMs_abi_default;
   sym_kMs_abi_cdecl; sym_kSaveregisters; sym_kSysv_abi_default; sym_kSysv_abi_cdecl;
   sym_kVectorcall; sym_kVarargs; sym_kWinapi]; ACTIONS 11651 [sym_kAlias];
   ACTIONS 9464 [sym_kClass; sym_kConst; sym_kConstructor; sym_kDestructor; sym_kEnd;
   sym_kExports; sym_kFinalization; sym_kFunction; sym_kImplementation; sym_kInitialization];
   ACTIONS 1016 [sym_kInline]; ACTIONS 9464 [sym_kInterface; sym_kLabel; sym_kProcedure;
   sym_kProperty; sym_kResourcestring; sym_kThreadvar; sym_kType; sym_kUses; sym_kVar]].

(** State 2090. *)
Definition ts_parse_table_2090 : parse_row :=
  [STATE 2496 [sym__procAttribute]; STATE 14551 [sym_procAttribute];
   STATE 2104 [aux_sym_declProcFwd_repeat1]; ACTIONS 13583 [anon_sym_LBRACK];
   ACTIONS 8194 [aux_sym_ppUsesBlock_token1]; ACTIONS 3 [sym__space];
   ACTIONS 5 [sym_ppDirective]; ACTIONS 3 [sym_comment]; ACTIONS 1016 [sym_kDefault;
   sym_kNodefault]; ACTIONS 11641 [sym_kDispId]; ACTIONS 8194 [sym_kGeneric; sym_kOperator;
   sym_kPublished]; ACTIONS 8207 [sym_kPublic]; ACTIONS 8194 [sym_kProtected; sym_kPrivate;
   sym_kStrict; sym_kRequired; sym_kOptional]; ACTIONS 1016 [sym_kStatic; sym_kVirtual;
   sym_kAbstract; sym_kDynamic; sym_kOverride; sym_kOverload; sym_kReintroduce; sym_kStdcall;
   sym_kCdecl; sym_kCppdecl; sym_kPascal; sym_kRegister; sym_kMwpascal];
   ACTIONS 11645 [sym_kMessage]; ACTIONS 11647 [sym_kDeprecated];
   ACTIONS 1016 [sym_kExperimental; sym_kPlatform; sym_kUnimplemented; sym_kCvar];
   ACTIONS 11649 [sym_kExport]; ACTIONS 1016 [sym_kFar; sym_kNear; sym_kSafecall; sym_kAssembler;
   sym_kNostackframe; sym_kInterrupt; sym_kNoreturn; sym_kIocheck; sym_kLocal; sym_kHardfloat;
   sym_kSoftfloat; sym_kMs_abi_default; sym_kMs_abi_cdecl; sym_kSaveregisters;
   sym_kSysv_abi_default; sym_kSysv_abi_cdecl; sym_kVectorcall; sym_kVarargs; sym_kWinapi];
   ACTIONS 11651 [sym_kAlias]; ACTIONS 8194 [sym_kCase; sym_kClass; sym_kConst; sym_kConstructor;
   sym_kDestructor; sym_kEnd; sym_kFunction]; ACTIONS 1016 [sym_kInline];
   ACTIONS 8194 [sym_kProcedure; sym_kProperty; sym_kResourcestring; sym_kThreadvar; sym_kType;
   sym_kVar]].

(** State 2091. *)
Definition ts_parse_table_2091 : parse_row :=
  [STATE 2496 [sym__procAttribute]; STATE 14551 [sym_procAttribute];
   STATE 2019 [aux_sym_declProcFwd_repeat1]; ACTIONS 13586 [anon_sym_LBRACK];
   ACTIONS 9604 [aux_sym_ppUsesBlock_token1]; ACTIONS 3 [sym__space];
   ACTIONS 5 [sym_ppDirective]; ACTIONS 3 [sym_comment]; ACTIONS 1016 [sym_kDefault;
   sym_kNodefault]; ACTIONS 11641 [sym_kDispId]; ACTIONS 9604 [sym_kGeneric; sym_kOperator;
   sym_kPublished]; ACTIONS 9617 [sym_kPublic]; ACTIONS 9604 [sym_kProtected; sym_kPrivate;
   sym_kStrict; sym_kRequired; sym_kOptional]; ACTIONS 1016 [sym_kStatic; sym_kVirtual;
   sym_kAbstract; sym_kDynamic; sym_kOverride; sym_kOverload; sym_kReintroduce; sym_kStdcall;
   sym_kCdecl; sym_kCppdecl; sym_kPascal; sym_kRegister; sym_kMwpascal];
   ACTIONS 11645 [sym_kMessage]; ACTIONS 11647 [sym_kDeprecated];
   ACTIONS 1016 [sym_kExperimental; sym_kPlatform; sym_kUnimplemented; sym_kCvar];
   ACTIONS 11649 [sym_kExport]; ACTIONS 1016 [sym_kFar; sym_kNear; sym_kSafecall; sym_kAssembler;
   sym_kNostackframe; sym_kInterrupt; sym_kNoreturn; sym_kIocheck; sym_kLocal; sym_kHardfloat;
   sym_kSoftfloat; sym_kMs_abi_default; sym_kMs_abi_cdecl; sym_kSaveregisters;
   sym_kSysv_abi_default; sym_kSysv_abi_cdecl; sym_kVectorcall; sym_kVarargs; sym_kWinapi];
   ACTIONS 11651 [sym_kAlias]; ACTIONS 9604 [sym_kCase; sym_kClass; sym_kConst; sym_kConstructor;
   sym_kDestructor; sym_kEnd; sym_kFunction]; ACTIONS 1016 [sym_kInline];
   ACTIONS 9604 [sym_kProcedure; sym_kProperty; sym_kResourcestring; sym_kThreadvar; sym_kType;
   sym_kVar]].

(** State 2092. *)
Definition ts_parse_table_2092 : parse_row :=
  [STATE 2501 [sym__procAttribute]; STATE 15613 [sym_procAttribute];
   STATE 2119 [aux_sym_declProcFwd_repeat1]; ACTIONS 13589 [anon_sym_LBRACK];
   ACTIONS 9492 [aux_sym_ppUsesBlock_token1]; ACTIONS 3 [sym__space];
   ACTIONS 5 [sym_ppDirective]; ACTIONS 3 [sym_comment]; ACTIONS 1016 [sym_kDefault;
   sym_kNodefault]; ACTIONS 11641 [sym_kDispId]; ACTIONS 9492 [sym_kGeneric; sym_kOperator];
   ACTIONS 11643 [sym_kPublic]; ACTIONS 1016 [sym_kStatic; sym_kVirtual; sym_kAbstract;
   sym_kDynamic; sym_kOverride; sym_kOverload; sym_kReintroduce; sym_kStdcall; sym_kCdecl;
   sym_kCppdecl; sym_kPascal; sym_kRegister; sym_kMwpascal]; ACTIONS 11645 [sym_kMessage];
   ACTIONS 11647 [sym_kDeprecated]; ACTIONS 1016 [sym_kExperimental; sym_kPlatform;
   sym_kUnimplemented; sym_kCvar]; ACTIONS 11649 [sym_kExport]; ACTIONS 1016 [sym_kFar;
   sym_kNear; sym_kSafecall; sym_kAssembler; sym_kNostackframe; sym_kInterrupt; sym_kNoreturn;
   sym_kIocheck; sym_kLocal; sym_kHardfloat; sym_kSoftfloat; sym_kMs_abi_default;
   sym_kMs_abi_cdecl; sym_kSaveregisters; sym_kSysv_abi_default; sym_kSysv_abi_cdecl;
   sym_kVectorcall; sym_kVarargs; sym_kWinapi]; ACTIONS 11651 [sym_kAlias];
   ACTIONS 9492 [sym_kClass; sym_kConst; sym_kConstructor; sym_kDestructor; sym_kEnd;
   sym_kExports; sym_kFinalization; sym_kFunction; sym_kImplementation; sym_kInitialization];
   ACTIONS 1016 [sym_kInline]; ACTIONS 9492 [sym_kInterface; sym_kLabel; sym_kProcedure;
   sym_kProperty; sym_kResourcestring; sym_kThreadvar; sym_kType; sym_kUses; sym_kVar]].

(** State 2093. *)
Definition ts_parse_table_2093 : parse_row :=
  [STATE 2501 [sym__procAttribute]; STATE 15613 [sym_procAttribute];
   STATE 2040 [aux_sym_declProcFwd_repeat1]; ACTIONS 13592 [anon_sym_LBRACK];
   ACTIONS 9520 [aux_sym_ppUsesBlock_token1]; ACTIONS 3 [sym__space];
   ACTIONS 5 [sym_ppDirective]; ACTIONS 3 [sym_comment]; ACTIONS 1016 [sym_kDefault;
   sym_kNodefault]; ACTIONS 11641 [sym_kDispId]; ACTIONS 9520 [sym_kGeneric; sym_kOperator];
   ACTIONS 11643 [sym_kPublic]; ACTIONS 1016 [sym_kStatic; sym_kVirtual; sym_kAbstract;
   sym_kDynamic; sym_kOverride; sym_kOverload; sym_kReintroduce; sym_kStdcall; sym_kCdecl;
   sym_kCppdecl; sym_kPascal; sym_kRegister; sym_kMwpascal]; ACTIONS 11645 [sym_kMessage];
   ACTIONS 11647 [sym_kDeprecated]; ACTIONS 1016 [sym_kExperimental; sym_kPlatform;
   sym_kUnimplemented; sym_kCvar]; ACTIONS 11649 [sym_kExport]; ACTIONS 1016 [sym_kFar;
   sym_kNear; sym_kSafecall; sym_kAssembler; sym_kNostackframe; sym_kInterrupt; sym_kNoreturn;
   sym_kIocheck; sym_kLocal; sym_kHardfloat; sym_kSoftfloat; sym_kMs_abi_default;
   sym_kMs_abi_cdecl; sym_kSaveregisters; sym_kSysv_abi_default; sym_kSysv_abi_cdecl;
   sym_kVectorcall; sym_kVarargs; sym_kWinapi]; ACTIONS 11651 [sym_kAlias];
   ACTIONS 9520 [sym_kClass; sym_kConst; sym_kConstructor; sym_kDestructor; sym_kEnd;
   sym_kExports; sym_kFinalization; sym_kFunction; sym_kImplementation; sym_kInitialization];
   ACTIONS 1016 [sym_kInline]; ACTIONS 9520 [sym_kInterface; sym_kLabel; sym_kProcedure;
   sym_kProperty; sym_kResourcestring; sym_kThreadvar; sym_kType; sym_kUses; sym_kVar]].

(** State 2094. *)
Definition ts_parse_table_2094 : parse_row :=
  [STATE 2496 [sym__procAttribute]; STATE 14551 [sym_procAttribute];
   STATE 2147 [aux_sym_declProcFwd_repeat1]; ACTIONS 13595 [anon_sym_LBRACK];
   ACTIONS 8954 [aux_sym_ppUsesBlock_token1]; ACTIONS 3 [sym__space];
   ACTIONS 5 [sym_ppDirective]; ACTIONS 3 [sym_comment]; ACTIONS 1016 [sym_kDefault;
   sym_kNodefault]; ACTIONS 11641 [sym_kDispId]; ACTIONS 8954 [sym_kGeneric; sym_kOperator;
   sym_kPublished]; ACTIONS 8967 [sym_kPublic]; ACTIONS 8954 [sym_kProtected; sym_kPrivate;
   sym_kStrict; sym_kRequired; sym_kOptional]; ACTIONS 1016 [sym_kStatic; sym_kVirtual;
   sym_kAbstract; sym_kDynamic; sym_kOverride; sym_kOverload; sym_kReintroduce; sym_kStdcall;
   sym_kCdecl; sym_kCppdecl; sym_kPascal; sym_kRegister; sym_kMwpascal];
   ACTIONS 11645 [sym_kMessage]; ACTIONS 11647 [sym_kDeprecated];
   ACTIONS 1016 [sym_kExperimental; sym_kPlatform; sym_kUnimplemented; sym_kCvar];
   ACTIONS 11649 [sym_kExport]; ACTIONS 1016 [sym_kFar; sym_kNear; sym_kSafecall; sym_kAssembler;
   sym_kNostackframe; sym_kInterrupt; sym_kNoreturn; sym_kIocheck; sym_kLocal; sym_kHardfloat;
   sym_kSoftfloat; sym_kMs_abi_default; sym_kMs_abi_cdecl; sym_kSaveregisters;
   sym_kSysv_abi_default; sym_kSysv_abi_cdecl; sym_kVectorcall; sym_kVarargs; sym_kWinapi];
   ACTIONS 11651 [sym_kAlias]; ACTIONS 8954 [sym_kCase; sym_kClass; sym_kConst; sym_kConstructor;
   sym_kDestructor; sym_kEnd; sym_kFunction]; ACTIONS 1016 [sym_kInline];
   ACTIONS 8954 [sym_kProcedure; sym_kProperty; sym_kResourcestring; sym_kThreadvar; sym_kType;
   sym_kVar]].

(** State 2095. *)
Definition ts_parse_table_2095 : parse_row :=
  [STATE 2856 [sym__ppIf]; STATE 2638 [sym__procAttributeNoExt];
   STATE 2639 [sym__procAttributesPp]; STATE 15800 [sym_procAttribute];
   STATE 2114 [aux_sym__declProc_repeat1]; ACTIONS 13598 [anon_sym_LBRACK];
   ACTIONS 1890 [aux_sym_ppUsesBlock_token1]; ACTIONS 3 [sym__space];
   ACTIONS 5 [sym_ppDirective]; ACTIONS 3 [sym_comment]; ACTIONS 1016 [sym_kDefault;
   sym_kNodefault]; ACTIONS 11641 [sym_kDispId]; ACTIONS 1883 [sym_kGeneric; sym_kOperator];
   ACTIONS 11643 [sym_kPublic]; ACTIONS 1883 [sym_kForward]; ACTIONS 1016 [sym_kStatic;
   sym_kVirtual; sym_kAbstract; sym_kDynamic; sym_kOverride; sym_kOverload; sym_kReintroduce;
   sym_kStdcall; sym_kCdecl; sym_kCppdecl; sym_kPascal; sym_kRegister; sym_kMwpascal];
   ACTIONS 1883 [sym_kExternal]; ACTIONS 11645 [sym_kMessage]; ACTIONS 11647 [sym_kDeprecated];
   ACTIONS 1016 [sym_kExperimental; sym_kPlatform; sym_kUnimplemented; sym_kCvar];
   ACTIONS 11649 [sym_kExport]; ACTIONS 1016 [sym_kFar; sym_kNear; sym_kSafecall; sym_kAssembler;
   sym_kNostackframe; sym_kInterrupt; sym_kNoreturn; sym_kIocheck; sym_kLocal; sym_kHardfloat;
   sym_kSoftfloat; sym_kMs_abi_default; sym_kMs_abi_cdecl; sym_kSaveregisters;
   sym_kSysv_abi_default; sym_kSysv_abi_cdecl; sym_kVectorcall; sym_kVarargs; sym_kWinapi];
   ACTIONS 11651 [sym_kAlias]; ACTIONS 1883 [sym_kAsm; sym_kBegin; sym_kClass; sym_kConst;
   sym_kConstructor; sym_kDestructor; sym_kExports; sym_kFunction]; ACTIONS 1016 [sym_kInline];
   ACTIONS 1883 [sym_kLabel; sym_kProcedure; sym_kResourcestring; sym_kThreadvar; sym_kType;
   sym_kUses; sym_kVar]].

(** State 2096. *)
Definition ts_parse_table_2096 : parse_row :=
  [STATE 2856 [sym__ppIf]; STATE 2638 [sym__procAttributeNoExt];
   STATE 2639 [sym__procAttributesPp]; STATE 15800 [sym_procAttribute];
   STATE 2082 [aux_sym__declProc_repeat1]; ACTIONS 13601 [anon_sym_LBRACK];
   ACTIONS 1921 [aux_sym_ppUsesBlock_token1]; ACTIONS 3 [sym__space];
   ACTIONS 5 [sym_ppDirective]; ACTIONS 3 [sym_comment]; ACTIONS 1016 [sym_kDefault;
   sym_kNodefault]; ACTIONS 11641 [sym_kDispId]; ACTIONS 1914 [sym_kGeneric; sym_kOperator];
   ACTIONS 11643 [sym_kPublic]; ACTIONS 1914 [sym_kForward]; ACTIONS 1016 [sym_kStatic;
   sym_kVirtual; sym_kAbstract; sym_kDynamic; sym_kOverride; sym_kOverload; sym_kReintroduce;
   sym_kStdcall; sym_kCdecl; sym_kCppdecl; sym_kPascal; sym_kRegister; sym_kMwpascal];
   ACTIONS 1914 [sym_kExternal]; ACTIONS 11645 [sym_kMessage]; ACTIONS 11647 [sym_kDeprecated];
   ACTIONS 1016 [sym_kExperimental; sym_kPlatform; sym_kUnimplemented; sym_kCvar];
   ACTIONS 11649 [sym_kExport]; ACTIONS 1016 [sym_kFar; sym_kNear; sym_kSafecall; sym_kAssembler;
   sym_kNostackframe; sym_kInterrupt; sym_kNoreturn; sym_kIocheck; sym_kLocal; sym_kHardfloat;
   sym_kSoftfloat; sym_kMs_abi_default; sym_kMs_abi_cdecl; sym_kSaveregisters;
   sym_kSysv_abi_default; sym_kSysv_abi_cdecl; sym_kVectorcall; sym_kVarargs; sym_kWinapi];
   ACTIONS 11651 [sym_kAlias]; ACTIONS 1914 [sym_kAsm; sym_kBegin; sym_kClass; sym_kConst;
   sym_kConstructor; sym_kDestructor; sym_kExports; sym_kFunction]; ACTIONS 1016 [sym_kInline];
   ACTIONS 1914 [sym_kLabel; sym_kProcedure; sym_kResourcestring; sym_kThreadvar; sym_kType;
   sym_kUses; sym_kVar]].

(** State 2097. *)
Definition ts_parse_table_2097 : parse_row :=
  [STATE 2856 [sym__ppIf]; STATE 2638 [sym__procAttributeNoExt];
   STATE 2639 [sym__procAttributesPp]; STATE 15800 [sym_procAttribute];
   STATE 2083 [aux_sym__declProc_repeat1]; ACTIONS 13604 [anon_sym_LBRACK];
   ACTIONS 1954 [aux_sym_ppUsesBlock_token1]; ACTIONS 3 [sym__space];
   ACTIONS 5 [sym_ppDirective]; ACTIONS 3 [sym_comment]; ACTIONS 1016 [sym_kDefault;
   sym_kNodefault]; ACTIONS 11641 [sym_kDispId]; ACTIONS 1947 [sym_kGeneric; sym_kOperator];
   ACTIONS 11643 [sym_kPublic]; ACTIONS 1947 [sym_kForward]; ACTIONS 1016 [sym_kStatic;
   sym_kVirtual; sym_kAbstract; sym_kDynamic; sym_kOverride; sym_kOverload; sym_kReintroduce;
   sym_kStdcall; sym_kCdecl; sym_kCppdecl; sym_kPascal; sym_kRegister; sym_kMwpascal];
   ACTIONS 1947 [sym_kExternal]; ACTIONS 11645 [sym_kMessage]; ACTIONS 11647 [sym_kDeprecated];
   ACTIONS 1016 [sym_kExperimental; sym_kPlatform; sym_kUnimplemented; sym_kCvar];
   ACTIONS 11649 [sym_kExport]; ACTIONS 1016 [sym_kFar; sym_kNear; sym_kSafecall; sym_kAssembler;
   sym_kNostackframe; sym_kInterrupt; sym_kNoreturn; sym_kIocheck; sym_kLocal; sym_kHardfloat;
   sym_kSoftfloat; sym_kMs_abi_default; sym_kMs_abi_cdecl; sym_kSaveregisters;
   sym_kSysv_abi_default; sym_kSysv_abi_cdecl; sym_kVectorcall; sym_kVarargs; sym_kWinapi];
   ACTIONS 11651 [sym_kAlias]; ACTIONS 1947 [sym_kAsm; sym_kBegin; sym_kClass; sym_kConst;
   sym_kConstructor; sym_kDestructor; sym_kExports; sym_kFunction]; ACTIONS 1016 [sym_kInline];
   ACTIONS 1947 [sym_kLabel; sym_kProcedure; sym_kResourcestring; sym_kThreadvar; sym_kType;
   sym_kUses; sym_kVar]].

(** State 2098. *)
Definition ts_parse_table_2098 : parse_row :=
  [STATE 2856 [sym__ppIf]; STATE 2638 [sym__procAttributeNoExt];
   STATE 2639 [sym__procAttributesPp]; STATE 15800 [sym_procAttribute];
   STATE 1986 [aux_sym__declProc_repeat1]; ACTIONS 13607 [anon_sym_LBRACK];
   ACTIONS 1999 [aux_sym_ppUsesBlock_token1]; ACTIONS 3 [sym__space];
   ACTIONS 5 [sym_ppDirective]; ACTIONS 3 [sym_comment]; ACTIONS 1016 [sym_kDefault;
   sym_kNodefault]; ACTIONS 11641 [sym_kDispId]; ACTIONS 1992 [sym_kGeneric; sym_kOperator];
   ACTIONS 11643 [sym_kPublic]; ACTIONS 1992 [sym_kForward]; ACTIONS 1016 [sym_kStatic;
   sym_kVirtual; sym_kAbstract; sym_kDynamic; sym_kOverride; sym_kOverload; sym_kReintroduce;
   sym_kStdcall; sym_kCdecl; sym_kCppdecl; sym_kPascal; sym_kRegister; sym_kMwpascal];
   ACTIONS 1992 [sym_kExternal]; ACTIONS 11645 [sym_kMessage]; ACTIONS 11647 [sym_kDeprecated];
   ACTIONS 1016 [sym_kExperimental; sym_kPlatform; sym_kUnimplemented; sym_kCvar];
   ACTIONS 11649 [sym_kExport]; ACTIONS 1016 [sym_kFar; sym_kNear; sym_kSafecall; sym_kAssembler;
   sym_kNostackframe; sym_kInterrupt; sym_kNoreturn; sym_kIocheck; sym_kLocal; sym_kHardfloat;
   sym_kSoftfloat; sym_kMs_abi_default; sym_kMs_abi_cdecl; sym_kSaveregisters;
   sym_kSysv_abi_default; sym_kSysv_abi_cdecl; sym_kVectorcall; sym_kVarargs; sym_kWinapi];
   ACTIONS 11651 [sym_kAlias]; ACTIONS 1992 [sym_kAsm; sym_kBegin; sym_kClass; sym_kConst;
   sym_kConstructor; sym_kDestructor; sym_kExports; sym_kFunction]; ACTIONS 1016 [sym_kInline];
   ACTIONS 1992 [sym_kLabel; sym_kProcedure; sym_kResourcestring; sym_kThreadvar; sym_kType;
   sym_kUses; sym_kVar]].

(** State 2099. *)
Definition ts_parse_table_2099 : parse_row :=
  [STATE 2856 [sym__ppIf]; STATE 2638 [sym__procAttributeNoExt];
   STATE 2639 [sym__procAttributesPp]; STATE 15800 [sym_procAttribute];
   STATE 2114 [aux_sym__declProc_repeat1]; ACTIONS 13610 [anon_sym_LBRACK];
   ACTIONS 2030 [aux_sym_ppUsesBlock_token1]; ACTIONS 3 [sym__space];
   ACTIONS 5 [sym_ppDirective]; ACTIONS 3 [sym_comment]; ACTIONS 1016 [sym_kDefault;
   sym_kNodefault]; ACTIONS 11641 [sym_kDispId]; ACTIONS 2023 [sym_kGeneric; sym_kOperator];
   ACTIONS 11643 [sym_kPublic]; ACTIONS 2023 [sym_kForward]; ACTIONS 1016 [sym_kStatic;
   sym_kVirtual; sym_kAbstract; sym_kDynamic; sym_kOverride; sym_kOverload; sym_kReintroduce;
   sym_kStdcall; sym_kCdecl; sym_kCppdecl; sym_kPascal; sym_kRegister; sym_kMwpascal];
   ACTIONS 2023 [sym_kExternal]; ACTIONS 11645 [sym_kMessage]; ACTIONS 11647 [sym_kDeprecated];
   ACTIONS 1016 [sym_kExperimental; sym_kPlatform; sym_kUnimplemented; sym_kCvar];
   ACTIONS 11649 [sym_kExport]; ACTIONS 1016 [sym_kFar; sym_kNear; sym_kSafecall; sym_kAssembler;
   sym_kNostackframe; sym_kInterrupt; sym_kNoreturn; sym_kIocheck; sym_kLocal; sym_kHardfloat;
   sym_kSoftfloat; sym_kMs_abi_default; sym_kMs_abi_cdecl; sym_kSaveregisters;
   sym_kSysv_abi_default; sym_kSysv_abi_cdecl; sym_kVectorcall; sym_kVarargs; sym_kWinapi];
   ACTIONS 11651 [sym_kAlias]; ACTIONS 2023 [sym_kAsm; sym_kBegin; sym_kClass; sym_kConst;
   sym_kConstructor; sym_kDestructor; sym_kExports; sym_kFunction]; ACTIONS 1016 [sym_kInline];
   ACTIONS 2023 [sym_kLabel; sym_kProcedure; sym_kResourcestring; sym_kThreadvar; sym_kType;
   sym_kUses; sym_kVar]].

(** State 2100. *)
Definition ts_parse_table_2100 : parse_row :=
  [STATE 2501 [sym__procAttribute]; STATE 15613 [sym_procAttribute];
   STATE 2040 [aux_sym_declProcFwd_repeat1]; ACTIONS 13613 [anon_sym_LBRACK];
   ACTIONS 9548 [aux_sym_ppUsesBlock_token1]; ACTIONS 3 [sym__space];
   ACTIONS 5 [sym_ppDirective]; ACTIONS 3 [sym_comment]; ACTIONS 1016 [sym_kDefault;
   sym_kNodefault]; ACTIONS 11641 [sym_kDispId]; ACTIONS 9548 [sym_kGeneric; sym_kOperator];
   ACTIONS 11643 [sym_kPublic]; ACTIONS 1016 [sym_kStatic; sym_kVirtual; sym_kAbstract;
   sym_kDynamic; sym_kOverride; sym_kOverload; sym_kReintroduce; sym_kStdcall; sym_kCdecl;
   sym_kCppdecl; sym_kPascal; sym_kRegister; sym_kMwpascal]; ACTIONS 11645 [sym_kMessage];
   ACTIONS 11647 [sym_kDeprecated]; ACTIONS 1016 [sym_kExperimental; sym_kPlatform;
   sym_kUnimplemented; sym_kCvar]; ACTIONS 11649 [sym_kExport]; ACTIONS 1016 [sym_kFar;
   sym_kNear; sym_kSafecall; sym_kAssembler; sym_kNostackframe; sym_kInterrupt; sym_kNoreturn;
   sym_kIocheck; sym_kLocal; sym_kHardfloat; sym_kSoftfloat; sym_kMs_abi_default;
   sym_kMs_abi_cdecl; sym_kSaveregisters; sym_kSysv_abi_default; sym_kSysv_abi_cdecl;
   sym_kVectorcall; sym_kVarargs; sym_kWinapi]; ACTIONS 11651 [sym_kAlias];
   ACTIONS 9548 [sym_kClass; sym_kConst; sym_kConstructor; sym_kDestructor; sym_kEnd;
   sym_kExports; sym_kFinalization; sym_kFunction; sym_kImplementation; sym_kInitialization];
   ACTIONS 1016 [sym_kInline]; ACTIONS 9548 [sym_kInterface; sym_kLabel; sym_kProcedure;
   sym_kProperty; sym_kResourcestring; sym_kThreadvar; sym_kType; sym_kUses; sym_kVar]].

(** State 2101. *)
Definition ts_parse_table_2101 : parse_row :=
  [STATE 2501 [sym__procAttribute]; STATE 15613 [sym_procAttribute];
   STATE 2040 [aux_sym_declProcFwd_repeat1]; ACTIONS 13616 [anon_sym_LBRACK];
   ACTIONS 9576 [aux_sym_ppUsesBlock_token1]; ACTIONS 3 [sym__space];
   ACTIONS 5 [sym_ppDirective]; ACTIONS 3 [sym_comment]; ACTIONS 1016 [sym_kDefault;
   sym_kNodefault]; ACTIONS 11641 [sym_kDispId]; ACTIONS 9576 [sym_kGeneric; sym_kOperator];
   ACTIONS 11643 [sym_kPublic]; ACTIONS 1016 [sym_kStatic; sym_kVirtual; sym_kAbstract;
   sym_kDynamic; sym_kOverride; sym_kOverload; sym_kReintroduce; sym_kStdcall; sym_kCdecl;
   sym_kCppdecl; sym_kPascal; sym_kRegister; sym_kMwpascal]; ACTIONS 11645 [sym_kMessage];
   ACTIONS 11647 [sym_kDeprecated]; ACTIONS 1016 [sym_kExperimental; sym_kPlatform;
   sym_kUnimplemented; sym_kCvar]; ACTIONS 11649 [sym_kExport]; ACTIONS 1016 [sym_kFar;
   sym_kNear; sym_kSafecall; sym_kAssembler; sym_kNostackframe; sym_kInterrupt; sym_kNoreturn;
   sym_kIocheck; sym_kLocal; sym_kHardfloat; sym_kSoftfloat; sym_kMs_abi_default;
   sym_kMs_abi_cdecl; sym_kSaveregisters; sym_kSysv_abi_default; sym_kSysv_abi_cdecl;
   sym_kVectorcall; sym_kVarargs; sym_kWinapi]; ACTIONS 11651 [sym_kAlias];
   ACTIONS 9576 [sym_kClass; sym_kConst; sym_kConstructor; sym_kDestructor; sym_kEnd;
   sym_kExports; sym_kFinalization; sym_kFunction; sym_kImplementation; sym_kInitialization];
   ACTIONS 1016 [sym_kInline]; ACTIONS 9576 [sym_kInterface; sym_kLabel; sym_kProcedure;
   sym_kProperty; sym_kResourcestring; sym_kThreadvar; sym_kType; sym_kUses; sym_kVar]].

(** State 2102. *)
Definition ts_parse_table_2102 : parse_row :=
  [STATE 2501 [sym__procAttribute]; STATE 15613 [sym_procAttribute];
   STATE 2132 [aux_sym_declProcFwd_repeat1]; ACTIONS 13619 [anon_sym_LBRACK];
   ACTIONS 8700 [aux_sym_ppUsesBlock_token1]; ACTIONS 3 [sym__space];
   ACTIONS 5 [sym_ppDirective]; ACTIONS 3 [sym_comment]; ACTIONS 1016 [sym_kDefault;
   sym_kNodefault]; ACTIONS 11641 [sym_kDispId]; ACTIONS 8700 [sym_kGeneric; sym_kOperator];
   ACTIONS 11643 [sym_kPublic]; ACTIONS 1016 [sym_kStatic; sym_kVirtual; sym_kAbstract;
   sym_kDynamic; sym_kOverride; sym_kOverload; sym_kReintroduce; sym_kStdcall; sym_kCdecl;
   sym_kCppdecl; sym_kPascal; sym_kRegister; sym_kMwpascal]; ACTIONS 11645 [sym_kMessage];
   ACTIONS 11647 [sym_kDeprecated]; ACTIONS 1016 [sym_kExperimental; sym_kPlatform;
   sym_kUnimplemented; sym_kCvar]; ACTIONS 11649 [sym_kExport]; ACTIONS 1016 [sym_kFar;
   sym_kNear; sym_kSafecall; sym_kAssembler; sym_kNostackframe; sym_kInterrupt; sym_kNoreturn;
   sym_kIocheck; sym_kLocal; sym_kHardfloat; sym_kSoftfloat; sym_kMs_abi_default;
   sym_kMs_abi_cdecl; sym_kSaveregisters; sym_kSysv_abi_default; sym_kSysv_abi_cdecl;
   sym_kVectorcall; sym_kVarargs; sym_kWinapi]; ACTIONS 11651 [sym_kAlias];
   ACTIONS 8700 [sym_kClass; sym_kConst; sym_kConstructor; sym_kDestructor; sym_kEnd;
   sym_kExports; sym_kFinalization; sym_kFunction; sym_kImplementation; sym_kInitialization];
   ACTIONS 1016 [sym_kInline]; ACTIONS 8700 [sym_kInterface; sym_kLabel; sym_kProcedure;
   sym_kProperty; sym_kResourcestring; sym_kThreadvar; sym_kType; sym_kUses; sym_kVar]].

(** State 2103. *)
Definition ts_parse_table_2103 : parse_row :=
  [STATE 2501 [sym__procAttribute]; STATE 15613 [sym_procAttribute];
   STATE 2137 [aux_sym_declProcFwd_repeat1]; ACTIONS 13622 [anon_sym_LBRACK];
   ACTIONS 9436 [aux_sym_ppUsesBlock_token1]; ACTIONS 3 [sym__space];
   ACTIONS 5 [sym_ppDirective]; ACTIONS 3 [sym_comment]; ACTIONS 1016 [sym_kDefault;
   sym_kNodefault]; ACTIONS 11641 [sym_kDispId]; ACTIONS 9436 [sym_kGeneric; sym_kOperator];
   ACTIONS 11643 [sym_kPublic]; ACTIONS 1016 [sym_kStatic; sym_kVirtual; sym_kAbstract;
   sym_kDynamic; sym_kOverride; sym_kOverload; sym_kReintroduce; sym_kStdcall; sym_kCdecl;
   sym_kCppdecl; sym_kPascal; sym_kRegister; sym_kMwpascal]; ACTIONS 11645 [sym_kMessage];
   ACTIONS 11647 [sym_kDeprecated]; ACTIONS 1016 [sym_kExperimental; sym_kPlatform;
   sym_kUnimplemented; sym_kCvar]; ACTIONS 11649 [sym_kExport]; ACTIONS 1016 [sym_kFar;
   sym_kNear; sym_kSafecall; sym_kAssembler; sym_kNostackframe; sym_kInterrupt; sym_kNoreturn;
   sym_kIocheck; sym_kLocal; sym_kHardfloat; sym_kSoftfloat; sym_kMs_abi_default;
   sym_kMs_abi_cdecl; sym_kSaveregisters; sym_kSysv_abi_default; sym_kSysv_abi_cdecl;
   sym_kVectorcall; sym_kVarargs; sym_kWinapi]; ACTIONS 11651 [sym_kAlias];
   ACTIONS 9436 [sym_kClass; sym_kConst; sym_kConstructor; sym_kDestructor; sym_kEnd;
   sym_kExports; sym_kFinalization; sym_kFunction; sym_kImplementation; sym_kInitialization];
   ACTIONS 1016 [sym_kInline]; ACTIONS 9436 [sym_kInterface; sym_kLabel; sym_kProcedure;
   sym_kProperty; sym_kResourcestring; sym_kThreadvar; sym_kType; sym_kUses; sym_kVar]].

(** State 2104. *)
Definition ts_parse_table_2104 : parse_row :=
  [STATE 2496 [sym__procAttribute]; STATE 14551 [sym_procAttribute];
   STATE 2112 [aux_sym_declProcFwd_repeat1]; ACTIONS 13625 [anon_sym_LBRACK];
   ACTIONS 8728 [aux_sym_ppUsesBlock_token1]; ACTIONS 3 [sym__space];
   ACTIONS 5 [sym_ppDirective]; ACTIONS 3 [sym_comment]; ACTIONS 1016 [sym_kDefault;
   sym_kNodefault]; ACTIONS 11641 [sym_kDispId]; ACTIONS 8728 [sym_kGeneric; sym_kOperator;
   sym_kPublished]; ACTIONS 8741 [sym_kPublic]; ACTIONS 8728 [sym_kProtected; sym_kPrivate;
   sym_kStrict; sym_kRequired; sym_kOptional]; ACTIONS 1016 [sym_kStatic; sym_kVirtual;
   sym_kAbstract; sym_kDynamic; sym_kOverride; sym_kOverload; sym_kReintroduce; sym_kStdcall;
   sym_kCdecl; sym_kCppdecl; sym_kPascal; sym_kRegister; sym_kMwpascal];
   ACTIONS 11645 [sym_kMessage]; ACTIONS 11647 [sym_kDeprecated];
   ACTIONS 1016 [sym_kExperimental; sym_kPlatform; sym_kUnimplemented; sym_kCvar];
   ACTIONS 11649 [sym_kExport]; ACTIONS 1016 [sym_kFar; sym_kNear; sym_kSafecall; sym_kAssembler;
   sym_kNostackframe; sym_kInterrupt; sym_kNoreturn; sym_kIocheck; sym_kLocal; sym_kHardfloat;
   sym_kSoftfloat; sym_kMs_abi_default; sym_kMs_abi_cdecl; sym_kSaveregisters;
   sym_kSysv_abi_default; sym_kSysv_abi_cdecl; sym_kVectorcall; sym_kVarargs; sym_kWinapi];
   ACTIONS 11651 [sym_kAlias]; ACTIONS 8728 [sym_kCase; sym_kClass; sym_kConst; sym_kConstructor;
   sym_kDestructor; sym_kEnd; sym_kFunction]; ACTIONS 1016 [sym_kInline];
   ACTIONS 8728 [sym_kProcedure; sym_kProperty; sym_kResourcestring; sym_kThreadvar; sym_kType;
   sym_kVar]].

(** State 2105. *)
Definition ts_parse_table_2105 : parse_row :=
  [STATE 2496 [sym__procAttribute]; STATE 14551 [sym_procAttribute];
   STATE 2022 [aux_sym_declProcFwd_repeat1]; ACTIONS 13628 [anon_sym_LBRACK];
   ACTIONS 8786 [aux_sym_ppUsesBlock_token1]; ACTIONS 3 [sym__space];
   ACTIONS 5 [sym_ppDirective]; ACTIONS 3 [sym_comment]; ACTIONS 1016 [sym_kDefault;
   sym_kNodefault]; ACTIONS 11641 [sym_kDispId]; ACTIONS 8786 [sym_kGeneric; sym_kOperator;
   sym_kPublished]; ACTIONS 8799 [sym_kPublic]; ACTIONS 8786 [sym_kProtected; sym_kPrivate;
   sym_kStrict; sym_kRequired; sym_kOptional]; ACTIONS 1016 [sym_kStatic; sym_kVirtual;
   sym_kAbstract; sym_kDynamic; sym_kOverride; sym_kOverload; sym_kReintroduce; sym_kStdcall;
   sym_kCdecl; sym_kCppdecl; sym_kPascal; sym_kRegister; sym_kMwpascal];
   ACTIONS 11645 [sym_kMessage]; ACTIONS 11647 [sym_kDeprecated];
   ACTIONS 1016 [sym_kExperimental; sym_kPlatform; sym_kUnimplemented; sym_kCvar];
   ACTIONS 11649 [sym_kExport]; ACTIONS 1016 [sym_kFar; sym_kNear; sym_kSafecall; sym_kAssembler;
   sym_kNostackframe; sym_kInterrupt; sym_kNoreturn; sym_kIocheck; sym_kLocal; sym_kHardfloat;
   sym_kSoftfloat; sym_kMs_abi_default; sym_kMs_abi_cdecl; sym_kSaveregisters;
   sym_kSysv_abi_default; sym_kSysv_abi_cdecl; sym_kVectorcall; sym_kVarargs; sym_kWinapi];
   ACTIONS 11651 [sym_kAlias]; ACTIONS 8786 [sym_kCase; sym_kClass; sym_kConst; sym_kConstructor;
   sym_kDestructor; sym_kEnd; sym_kFunction]; ACTIONS 1016 [sym_kInline];
   ACTIONS 8786 [sym_kProcedure; sym_kProperty; sym_kResourcestring; sym_kThreadvar; sym_kType;
   sym_kVar]].

(** State 2106. *)
Definition ts_parse_table_2106 : parse_row :=
  [STATE 2496 [sym__procAttribute]; STATE 14551 [sym_procAttribute];
   STATE 2112 [aux_sym_declProcFwd_repeat1]; ACTIONS 13631 [anon_sym_LBRACK];
   ACTIONS 8814 [aux_sym_ppUsesBlock_token1]; ACTIONS 3 [sym__space];
   ACTIONS 5 [sym_ppDirective]; ACTIONS 3 [sym_comment]; ACTIONS 1016 [sym_kDefault;
   sym_kNodefault]; ACTIONS 11641 [sym_kDispId]; ACTIONS 8814 [sym_kGeneric; sym_kOperator;
   sym_kPublished]; ACTIONS 8827 [sym_kPublic]; ACTIONS 8814 [sym_kProtected; sym_kPrivate;
   sym_kStrict; sym_kRequired; sym_kOptional]; ACTIONS 1016 [sym_kStatic; sym_kVirtual;
   sym_kAbstract; sym_kDynamic; sym_kOverride; sym_kOverload; sym_kReintroduce; sym_kStdcall;
   sym_kCdecl; sym_kCppdecl; sym_kPascal; sym_kRegister; sym_kMwpascal];
   ACTIONS 11645 [sym_kMessage]; ACTIONS 11647 [sym_kDeprecated];
   ACTIONS 1016 [sym_kExperimental; sym_kPlatform; sym_kUnimplemented; sym_kCvar];
   ACTIONS 11649 [sym_kExport]; ACTIONS 1016 [sym_kFar; sym_kNear; sym_kSafecall; sym_kAssembler;
   sym_kNostackframe; sym_kInterrupt; sym_kNoreturn; sym_kIocheck; sym_kLocal; sym_kHardfloat;
   sym_kSoftfloat; sym_kMs_abi_default; sym_kMs_abi_cdecl; sym_kSaveregisters;
   sym_kSysv_abi_default; sym_kSysv_abi_cdecl; sym_kVectorcall; sym_kVarargs; sym_kWinapi];
   ACTIONS 11651 [sym_kAlias]; ACTIONS 8814 [sym_kCase; sym_kClass; sym_kConst; sym_kConstructor;
   sym_kDestructor; sym_kEnd; sym_kFunction]; ACTIONS 1016 [sym_kInline];
   ACTIONS 8814 [sym_kProcedure; sym_kProperty; sym_kResourcestring; sym_kThreadvar; sym_kType;
   sym_kVar]].

(** State 2107. *)
Definition ts_parse_table_2107 : parse_row :=
  [STATE 2496 [sym__procAttribute]; STATE 14551 [sym_procAttribute];
   STATE 2023 [aux_sym_declProcFwd_repeat1]; ACTIONS 13634 [anon_sym_LBRACK];
   ACTIONS 8898 [aux_sym_ppUsesBlock_token1]; ACTIONS 3 [sym__space];
   ACTIONS 5 [sym_ppDirective]; ACTIONS 3 [sym_comment]; ACTIONS 1016 [sym_kDefault;
   sym_kNodefault]; ACTIONS 11641 [sym_kDispId]; ACTIONS 8898 [sym_kGeneric; sym_kOperator;
   sym_kPublished]; ACTIONS 8911 [sym_kPublic]; ACTIONS 8898 [sym_kProtected; sym_kPrivate;
   sym_kStrict; sym_kRequired; sym_kOptional]; ACTIONS 1016 [sym_kStatic; sym_kVirtual;
   sym_kAbstract; sym_kDynamic; sym_kOverride; sym_kOverload; sym_kReintroduce; sym_kStdcall;
   sym_kCdecl; sym_kCppdecl; sym_kPascal; sym_kRegister; sym_kMwpascal];
   ACTIONS 11645 [sym_kMessage]; ACTIONS 11647 [sym_kDeprecated];
   ACTIONS 1016 [sym_kExperimental; sym_kPlatform; sym_kUnimplemented; sym_kCvar];
   ACTIONS 11649 [sym_kExport]; ACTIONS 1016 [sym_kFar; sym_kNear; sym_kSafecall; sym_kAssembler;
   sym_kNostackframe; sym_kInterrupt; sym_kNoreturn; sym_kIocheck; sym_kLocal; sym_kHardfloat;
   sym_kSoftfloat; sym_kMs_abi_default; sym_kMs_abi_cdecl; sym_kSaveregisters;
   sym_kSysv_abi_default; sym_kSysv_abi_cdecl; sym_kVectorcall; sym_kVarargs; sym_kWinapi];
   ACTIONS 11651 [sym_kAlias]; ACTIONS 8898 [sym_kCase; sym_kClass; sym_kConst; sym_kConstructor;
   sym_kDestructor; sym_kEnd; sym_kFunction]; ACTIONS 1016 [sym_kInline];
   ACTIONS 8898 [sym_kProcedure; sym_kProperty; sym_kResourcestring; sym_kThreadvar; sym_kType;
   sym_kVar]].

(** State 2108. *)
Definition ts_parse_table_2108 : parse_row :=
  [STATE 2856 [sym__ppIf]; STATE 2638 [sym__procAttributeNoExt];
   STATE 2639 [sym__procAttributesPp]; STATE 15800 [sym_procAttribute];
   STATE 2063 [aux_sym__declProc_repeat1]; ACTIONS 13637 [anon_sym_LBRACK];
   ACTIONS 2597 [aux_sym_ppUsesBlock_token1]; ACTIONS 3 [sym__space];
   ACTIONS 5 [sym_ppDirective]; ACTIONS 3 [sym_comment]; ACTIONS 1016 [sym_kDefault;
   sym_kNodefault]; ACTIONS 11641 [sym_kDispId]; ACTIONS 2590 [sym_kGeneric; sym_kOperator];
   ACTIONS 11643 [sym_kPublic]; ACTIONS 2590 [sym_kForward]; ACTIONS 1016 [sym_kStatic;
   sym_kVirtual; sym_kAbstract; sym_kDynamic; sym_kOverride; sym_kOverload; sym_kReintroduce;
   sym_kStdcall; sym_kCdecl; sym_kCppdecl; sym_kPascal; sym_kRegister; sym_kMwpascal];
   ACTIONS 2590 [sym_kExternal]; ACTIONS 11645 [sym_kMessage]; ACTIONS 11647 [sym_kDeprecated];
   ACTIONS 1016 [sym_kExperimental; sym_kPlatform; sym_kUnimplemented; sym_kCvar];
   ACTIONS 11649 [sym_kExport]; ACTIONS 1016 [sym_kFar; sym_kNear; sym_kSafecall; sym_kAssembler;
   sym_kNostackframe; sym_kInterrupt; sym_kNoreturn; sym_kIocheck; sym_kLocal; sym_kHardfloat;
   sym_kSoftfloat; sym_kMs_abi_default; sym_kMs_abi_cdecl; sym_kSaveregisters;
   sym_kSysv_abi_default; sym_kSysv_abi_cdecl; sym_kVectorcall; sym_kVarargs; sym_kWinapi];
   ACTIONS 11651 [sym_kAlias]; ACTIONS 2590 [sym_kAsm; sym_kBegin; sym_kClass; sym_kConst;
   sym_kConstructor; sym_kDestructor; sym_kExports; sym_kFunction]; ACTIONS 1016 [sym_kInline];
   ACTIONS 2590 [sym_kLabel; sym_kProcedure; sym_kResourcestring; sym_kThreadvar; sym_kType;
   sym_kUses; sym_kVar]].

(** State 2109. *)
Definition ts_parse_table_2109 : parse_row :=
  [STATE 2501 [sym__procAttribute]; STATE 15613 [sym_procAttribute];
   STATE 2040 [aux_sym_declProcFwd_repeat1]; ACTIONS 13640 [anon_sym_LBRACK];
   ACTIONS 7392 [aux_sym_ppUsesBlock_token1]; ACTIONS 3 [sym__space];
   ACTIONS 5 [sym_ppDirective]; ACTIONS 3 [sym_comment]; ACTIONS 1016 [sym_kDefault;
   sym_kNodefault]; ACTIONS 11641 [sym_kDispId]; ACTIONS 7392 [sym_kGeneric; sym_kOperator];
   ACTIONS 11643 [sym_kPublic]; ACTIONS 1016 [sym_kStatic; sym_kVirtual; sym_kAbstract;
   sym_kDynamic; sym_kOverride; sym_kOverload; sym_kReintroduce; sym_kStdcall; sym_kCdecl;
   sym_kCppdecl; sym_kPascal; sym_kRegister; sym_kMwpascal]; ACTIONS 11645 [sym_kMessage];
   ACTIONS 11647 [sym_kDeprecated]; ACTIONS 1016 [sym_kExperimental; sym_kPlatform;
   sym_kUnimplemented; sym_kCvar]; ACTIONS 11649 [sym_kExport]; ACTIONS 1016 [sym_kFar;
   sym_kNear; sym_kSafecall; sym_kAssembler; sym_kNostackframe; sym_kInterrupt; sym_kNoreturn;
   sym_kIocheck; sym_kLocal; sym_kHardfloat; sym_kSoftfloat; sym_kMs_abi_default;
   sym_kMs_abi_cdecl; sym_kSaveregisters; sym_kSysv_abi_default; sym_kSysv_abi_cdecl;
   sym_kVectorcall; sym_kVarargs; sym_kWinapi]; ACTIONS 11651 [sym_kAlias];
   ACTIONS 7392 [sym_kClass; sym_kConst; sym_kConstructor; sym_kDestructor; sym_kEnd;
   sym_kExports; sym_kFinalization; sym_kFunction; sym_kImplementation; sym_kInitialization];
   ACTIONS 1016 [sym_kInline]; ACTIONS 7392 [sym_kInterface; sym_kLabel; sym_kProcedure;
   sym_kProperty; sym_kResourcestring; sym_kThreadvar; sym_kType; sym_kUses; sym_kVar]].

(** State 2110. *)
Definition ts_parse_table_2110 : parse_row :=
  [STATE 2856 [sym__ppIf]; STATE 2638 [sym__procAttributeNoExt];
   STATE 2639 [sym__procAttributesPp]; STATE 15800 [sym_procAttribute];
   STATE 2114 [aux_sym__declProc_repeat1]; ACTIONS 13643 [anon_sym_LBRACK];
   ACTIONS 3140 [aux_sym_ppUsesBlock_token1]; ACTIONS 3 [sym__space];
   ACTIONS 5 [sym_ppDirective]; ACTIONS 3 [sym_comment]; ACTIONS 1016 [sym_kDefault;
   sym_kNodefault]; ACTIONS 11641 [sym_kDispId]; ACTIONS 3133 [sym_kGeneric; sym_kOperator];
   ACTIONS 11643 [sym_kPublic]; ACTIONS 3133 [sym_kForward]; ACTIONS 1016 [sym_kStatic;
   sym_kVirtual; sym_kAbstract; sym_kDynamic; sym_kOverride; sym_kOverload; sym_kReintroduce;
   sym_kStdcall; sym_kCdecl; sym_kCppdecl; sym_kPascal; sym_kRegister; sym_kMwpascal];
   ACTIONS 3133 [sym_kExternal]; ACTIONS 11645 [sym_kMessage]; ACTIONS 11647 [sym_kDeprecated];
   ACTIONS 1016 [sym_kExperimental; sym_kPlatform; sym_kUnimplemented; sym_kCvar];
   ACTIONS 11649 [sym_kExport]; ACTIONS 1016 [sym_kFar; sym_kNear; sym_kSafecall; sym_kAssembler;
   sym_kNostackframe; sym_kInterrupt; sym_kNoreturn; sym_kIocheck; sym_kLocal; sym_kHardfloat;
   sym_kSoftfloat; sym_kMs_abi_default; sym_kMs_abi_cdecl; sym_kSaveregisters;
   sym_kSysv_abi_default; sym_kSysv_abi_cdecl; sym_kVectorcall; sym_kVarargs; sym_kWinapi];
   ACTIONS 11651 [sym_kAlias]; ACTIONS 3133 [sym_kAsm; sym_kBegin; sym_kClass; sym_kConst;
   sym_kConstructor; sym_kDestructor; sym_kExports; sym_kFunction]; ACTIONS 1016 [sym_kInline];
   ACTIONS 3133 [sym_kLabel; sym_kProcedure; sym_kResourcestring; sym_kThreadvar; sym_kType;
   sym_kUses; sym_kVar]].

(** State 2111. *)
Definition ts_parse_table_2111 : parse_row :=
  [STATE 2856 [sym__ppIf]; STATE 2638 [sym__procAttributeNoExt];
   STATE 2639 [sym__procAttributesPp]; STATE 15800 [sym_procAttribute];
   STATE 1988 [aux_sym__declProc_repeat1]; ACTIONS 13646 [anon_sym_LBRACK];
   ACTIONS 2211 [aux_sym_ppUsesBlock_token1]; ACTIONS 3 [sym__space];
   ACTIONS 5 [sym_ppDirective]; ACTIONS 3 [sym_comment]; ACTIONS 1016 [sym_kDefault;
   sym_kNodefault]; ACTIONS 11641 [sym_kDispId]; ACTIONS 2204 [sym_kGeneric; sym_kOperator];
   ACTIONS 11643 [sym_kPublic]; ACTIONS 2204 [sym_kForward]; ACTIONS 1016 [sym_kStatic;
   sym_kVirtual; sym_kAbstract; sym_kDynamic; sym_kOverride; sym_kOverload; sym_kReintroduce;
   sym_kStdcall; sym_kCdecl; sym_kCppdecl; sym_kPascal; sym_kRegister; sym_kMwpascal];
   ACTIONS 2204 [sym_kExternal]; ACTIONS 11645 [sym_kMessage]; ACTIONS 11647 [sym_kDeprecated];
   ACTIONS 1016 [sym_kExperimental; sym_kPlatform; sym_kUnimplemented; sym_kCvar];
   ACTIONS 11649 [sym_kExport]; ACTIONS 1016 [sym_kFar; sym_kNear; sym_kSafecall; sym_kAssembler;
   sym_kNostackframe; sym_kInterrupt; sym_kNoreturn; sym_kIocheck; sym_kLocal; sym_kHardfloat;
   sym_kSoftfloat; sym_kMs_abi_default; sym_kMs_abi_cdecl; sym_kSaveregisters;
   sym_kSysv_abi_default; sym_kSysv_abi_cdecl; sym_kVectorcall; sym_kVarargs; sym_kWinapi];
   ACTIONS 11651 [sym_kAlias]; ACTIONS 2204 [sym_kAsm; sym_kBegin; sym_kClass; sym_kConst;
   sym_kConstructor; sym_kDestructor; sym_kExports; sym_kFunction]; ACTIONS 1016 [sym_kInline];
   ACTIONS 2204 [sym_kLabel; sym_kProcedure; sym_kResourcestring; sym_kThreadvar; sym_kType;
   sym_kUses; sym_kVar]].

(** State 2112. *)
Definition ts_parse_table_2112 : parse_row :=
  [STATE 2496 [sym__procAttribute]; STATE 14551 [sym_procAttribute];
   STATE 2112 [aux_sym_declProcFwd_repeat1]; ACTIONS 13649 [anon_sym_LBRACK];
   ACTIONS 8588 [aux_sym_ppUsesBlock_token1]; ACTIONS 3 [sym__space];
   ACTIONS 5 [sym_ppDirective]; ACTIONS 3 [sym_comment]; ACTIONS 8595 [sym_kDefault;
   sym_kNodefault]; ACTIONS 8598 [sym_kDispId]; ACTIONS 8588 [sym_kGeneric; sym_kOperator;
   sym_kPublished]; ACTIONS 8601 [sym_kPublic]; ACTIONS 8588 [sym_kProtected; sym_kPrivate;
   sym_kStrict; sym_kRequired; sym_kOptional]; ACTIONS 8595 [sym_kStatic; sym_kVirtual;
   sym_kAbstract; sym_kDynamic; sym_kOverride; sym_kOverload; sym_kReintroduce; sym_kStdcall;
   sym_kCdecl; sym_kCppdecl; sym_kPascal; sym_kRegister; sym_kMwpascal];
   ACTIONS 8604 [sym_kMessage]; ACTIONS 8607 [sym_kDeprecated]; ACTIONS 8595 [sym_kExperimental;
   sym_kPlatform; sym_kUnimplemented; sym_kCvar]; ACTIONS 8610 [sym_kExport];
   ACTIONS 8595 [sym_kFar; sym_kNear; sym_kSafecall; sym_kAssembler; sym_kNostackframe;
   sym_kInterrupt; sym_kNoreturn; sym_kIocheck; sym_kLocal; sym_kHardfloat; sym_kSoftfloat;
   sym_kMs_abi_default; sym_kMs_abi_cdecl; sym_kSaveregisters; sym_kSysv_abi_default;
   sym_kSysv_abi_cdecl; sym_kVectorcall; sym_kVarargs; sym_kWinapi]; ACTIONS 8613 [sym_kAlias];
   ACTIONS 8588 [sym_kCase; sym_kClass; sym_kConst; sym_kConstructor; sym_kDestructor; sym_kEnd;
   sym_kFunction]; ACTIONS 8595 [sym_kInline]; ACTIONS 8588 [sym_kProcedure; sym_kProperty;
   sym_kResourcestring; sym_kThreadvar; sym_kType; sym_kVar]].

(** State 2113. *)
Definition ts_parse_table_2113 : parse_row :=
  [STATE 2501 [sym__procAttribute]; STATE 15613 [sym_procAttribute];
   STATE 2141 [aux_sym_declProcFwd_repeat1]; ACTIONS 13652 [anon_sym_LBRACK];
   ACTIONS 9380 [aux_sym_ppUsesBlock_token1]; ACTIONS 3 [sym__space];
   ACTIONS 5 [sym_ppDirective]; ACTIONS 3 [sym_comment]; ACTIONS 1016 [sym_kDefault;
   sym_kNodefault]; ACTIONS 11641 [sym_kDispId]; ACTIONS 9380 [sym_kGeneric; sym_kOperator];
   ACTIONS 11643 [sym_kPublic]; ACTIONS 1016 [sym_kStatic; sym_kVirtual; sym_kAbstract;
   sym_kDynamic; sym_kOverride; sym_kOverload; sym_kReintroduce; sym_kStdcall; sym_kCdecl;
   sym_kCppdecl; sym_kPascal; sym_kRegister; sym_kMwpascal]; ACTIONS 11645 [sym_kMessage];
   ACTIONS 11647 [sym_kDeprecated]; ACTIONS 1016 [sym_kExperimental; sym_kPlatform;
   sym_kUnimplemented; sym_kCvar]; ACTIONS 11649 [sym_kExport]; ACTIONS 1016 [sym_kFar;
   sym_kNear; sym_kSafecall; sym_kAssembler; sym_kNostackframe; sym_kInterrupt; sym_kNoreturn;
   sym_kIocheck; sym_kLocal; sym_kHardfloat; sym_kSoftfloat; sym_kMs_abi_default;
   sym_kMs_abi_cdecl; sym_kSaveregisters; sym_kSysv_abi_default; sym_kSysv_abi_cdecl;
   sym_kVectorcall; sym_kVarargs; sym_kWinapi]; ACTIONS 11651 [sym_kAlias];
   ACTIONS 9380 [sym_kClass; sym_kConst; sym_kConstructor; sym_kDestructor; sym_kEnd;
   sym_kExports; sym_kFinalization; sym_kFunction; sym_kImplementation; sym_kInitialization];
   ACTIONS 1016 [sym_kInline]; ACTIONS 9380 [sym_kInterface; sym_kLabel; sym_kProcedure;
   sym_kProperty; sym_kResourcestring; sym_kThreadvar; sym_kType; sym_kUses; sym_kVar]].

(** State 2114. *)
Definition ts_parse_table_2114 : parse_row :=
  [STATE 2856 [sym__ppIf]; STATE 2638 [sym__procAttributeNoExt];
   STATE 2639 [sym__procAttributesPp]; STATE 15800 [sym_procAttribute];
   STATE 2114 [aux_sym__declProc_repeat1]; ACTIONS 13655 [anon_sym_LBRACK];
   ACTIONS 1180 [aux_sym_ppUsesBlock_token1]; ACTIONS 3 [sym__space];
   ACTIONS 5 [sym_ppDirective]; ACTIONS 3 [sym_comment]; ACTIONS 1183 [sym_kDefault;
   sym_kNodefault]; ACTIONS 1186 [sym_kDispId]; ACTIONS 1173 [sym_kGeneric; sym_kOperator];
   ACTIONS 1189 [sym_kPublic]; ACTIONS 1173 [sym_kForward]; ACTIONS 1183 [sym_kStatic;
   sym_kVirtual; sym_kAbstract; sym_kDynamic; sym_kOverride; sym_kOverload; sym_kReintroduce;
   sym_kStdcall; sym_kCdecl; sym_kCppdecl; sym_kPascal; sym_kRegister; sym_kMwpascal];
   ACTIONS 1173 [sym_kExternal]; ACTIONS 1192 [sym_kMessage]; ACTIONS 1195 [sym_kDeprecated];
   ACTIONS 1183 [sym_kExperimental; sym_kPlatform; sym_kUnimplemented; sym_kCvar];
   ACTIONS 1198 [sym_kExport]; ACTIONS 1183 [sym_kFar; sym_kNear; sym_kSafecall; sym_kAssembler;
   sym_kNostackframe; sym_kInterrupt; sym_kNoreturn; sym_kIocheck; sym_kLocal; sym_kHardfloat;
   sym_kSoftfloat; sym_kMs_abi_default; sym_kMs_abi_cdecl; sym_kSaveregisters;
   sym_kSysv_abi_default; sym_kSysv_abi_cdecl; sym_kVectorcall; sym_kVarargs; sym_kWinapi];
   ACTIONS 1201 [sym_kAlias]; ACTIONS 1173 [sym_kAsm; sym_kBegin; sym_kClass; sym_kConst;
   sym_kConstructor; sym_kDestructor; sym_kExports; sym_kFunction]; ACTIONS 1183 [sym_kInline];
   ACTIONS 1173 [sym_kLabel; sym_kProcedure; sym_kResourcestring; sym_kThreadvar; sym_kType;
   sym_kUses; sym_kVar]].

(** State 2115. *)
Definition ts_parse_table_2115 : parse_row :=
  [STATE 2856 [sym__ppIf]; STATE 2638 [sym__procAttributeNoExt];
   STATE 2639 [sym__procAttributesPp]; STATE 15800 [sym_procAttribute];
   STATE 2114 [aux_sym__declProc_repeat1]; ACTIONS 13658 [anon_sym_LBRACK];
   ACTIONS 2063 [aux_sym_ppUsesBlock_token1]; ACTIONS 3 [sym__space];
   ACTIONS 5 [sym_ppDirective]; ACTIONS 3 [sym_comment]; ACTIONS 1016 [sym_kDefault;
   sym_kNodefault]; ACTIONS 11641 [sym_kDispId]; ACTIONS 2056 [sym_kGeneric; sym_kOperator];
   ACTIONS 11643 [sym_kPublic]; ACTIONS 2056 [sym_kForward]; ACTIONS 1016 [sym_kStatic;
   sym_kVirtual; sym_kAbstract; sym_kDynamic; sym_kOverride; sym_kOverload; sym_kReintroduce;
   sym_kStdcall; sym_kCdecl; sym_kCppdecl; sym_kPascal; sym_kRegister; sym_kMwpascal];
   ACTIONS 2056 [sym_kExternal]; ACTIONS 11645 [sym_kMessage]; ACTIONS 11647 [sym_kDeprecated];
   ACTIONS 1016 [sym_kExperimental; sym_kPlatform; sym_kUnimplemented; sym_kCvar];
   ACTIONS 11649 [sym_kExport]; ACTIONS 1016 [sym_kFar; sym_kNear; sym_kSafecall; sym_kAssembler;
   sym_kNostackframe; sym_kInterrupt; sym_kNoreturn; sym_kIocheck; sym_kLocal; sym_kHardfloat;
   sym_kSoftfloat; sym_kMs_abi_default; sym_kMs_abi_cdecl; sym_kSaveregisters;
   sym_kSysv_abi_default; sym_kSysv_abi_cdecl; sym_kVectorcall; sym_kVarargs; sym_kWinapi];
   ACTIONS 11651 [sym_kAlias]; ACTIONS 2056 [sym_kAsm; sym_kBegin; sym_kClass; sym_kConst;
   sym_kConstructor; sym_kDestructor; sym_kExports; sym_kFunction]; ACTIONS 1016 [sym_kInline];
   ACTIONS 2056 [sym_kLabel; sym_kProcedure; sym_kResourcestring; sym_kThreadvar; sym_kType;
   sym_kUses; sym_kVar]].

(** State 2116. *)
Definition ts_parse_table_2116 : parse_row :=
  [STATE 2856 [sym__ppIf]; STATE 2638 [sym__procAttributeNoExt];
   STATE 2639 [sym__procAttributesPp]; STATE 15800 [sym_procAttribute];
   STATE 1992 [aux_sym__declProc_repeat1]; ACTIONS 13661 [anon_sym_LBRACK];
   ACTIONS 2108 [aux_sym_ppUsesBlock_token1]; ACTIONS 3 [sym__space];
   ACTIONS 5 [sym_ppDirective]; ACTIONS 3 [sym_comment]; ACTIONS 1016 [sym_kDefault;
   sym_kNodefault]; ACTIONS 11641 [sym_kDispId]; ACTIONS 2101 [sym_kGeneric; sym_kOperator];
   ACTIONS 11643 [sym_kPublic]; ACTIONS 2101 [sym_kForward]; ACTIONS 1016 [sym_kStatic;
   sym_kVirtual; sym_kAbstract; sym_kDynamic; sym_kOverride; sym_kOverload; sym_kReintroduce;
   sym_kStdcall; sym_kCdecl; sym_kCppdecl; sym_kPascal; sym_kRegister; sym_kMwpascal];
   ACTIONS 2101 [sym_kExternal]; ACTIONS 11645 [sym_kMessage]; ACTIONS 11647 [sym_kDeprecated];
   ACTIONS 1016 [sym_kExperimental; sym_kPlatform; sym_kUnimplemented; sym_kCvar];
   ACTIONS 11649 [sym_kExport]; ACTIONS 1016 [sym_kFar; sym_kNear; sym_kSafecall; sym_kAssembler;
   sym_kNostackframe; sym_kInterrupt; sym_kNoreturn; sym_kIocheck; sym_kLocal; sym_kHardfloat;
   sym_kSoftfloat; sym_kMs_abi_default; sym_kMs_abi_cdecl; sym_kSaveregisters;
   sym_kSysv_abi_default; sym_kSysv_abi_cdecl; sym_kVectorcall; sym_kVarargs; sym_kWinapi];
   ACTIONS 11651 [sym_kAlias]; ACTIONS 2101 [sym_kAsm; sym_kBegin; sym_kClass; sym_kConst;
   sym_kConstructor; sym_kDestructor; sym_kExports; sym_kFunction]; ACTIONS 1016 [sym_kInline];
   ACTIONS 2101 [sym_kLabel; sym_kProcedure; sym_kResourcestring; sym_kThreadvar; sym_kType;
   sym_kUses; sym_kVar]].

(** State 2117. *)
Definition ts_parse_table_2117 : parse_row :=
  [STATE 2501 [sym__procAttribute]; STATE 15613 [sym_procAttribute];
   STATE 2040 [aux_sym_declProcFwd_repeat1]; ACTIONS 13664 [anon_sym_LBRACK];
   ACTIONS 7490 [aux_sym_ppUsesBlock_token1]; ACTIONS 3 [sym__space];
   ACTIONS 5 [sym_ppDirective]; ACTIONS 3 [sym_comment]; ACTIONS 1016 [sym_kDefault;
   sym_kNodefault]; ACTIONS 11641 [sym_kDispId]; ACTIONS 7490 [sym_kGeneric; sym_kOperator];
   ACTIONS 11643 [sym_kPublic]; ACTIONS 1016 [sym_kStatic; sym_kVirtual; sym_kAbstract;
   sym_kDynamic; sym_kOverride; sym_kOverload; sym_kReintroduce; sym_kStdcall; sym_kCdecl;
   sym_kCppdecl; sym_kPascal; sym_kRegister; sym_kMwpascal]; ACTIONS 11645 [sym_kMessage];
   ACTIONS 11647 [sym_kDeprecated]; ACTIONS 1016 [sym_kExperimental; sym_kPlatform;
   sym_kUnimplemented; sym_kCvar]; ACTIONS 11649 [sym_kExport]; ACTIONS 1016 [sym_kFar;
   sym_kNear; sym_kSafecall; sym_kAssembler; sym_kNostackframe; sym_kInterrupt; sym_kNoreturn;
   sym_kIocheck; sym_kLocal; sym_kHardfloat; sym_kSoftfloat; sym_kMs_abi_default;
   sym_kMs_abi_cdecl; sym_kSaveregisters; sym_kSysv_abi_default; sym_kSysv_abi_cdecl;
   sym_kVectorcall; sym_kVarargs; sym_kWinapi]; ACTIONS 11651 [sym_kAlias];
   ACTIONS 7490 [sym_kClass; sym_kConst; sym_kConstructor; sym_kDestructor; sym_kEnd;
   sym_kExports; sym_kFinalization; sym_kFunction; sym_kImplementation; sym_kInitialization];
   ACTIONS 1016 [sym_kInline]; ACTIONS 7490 [sym_kInterface; sym_kLabel; sym_kProcedure;
   sym_kProperty; sym_kResourcestring; sym_kThreadvar; sym_kType; sym_kUses; sym_kVar]].

(** State 2118. *)
Definition ts_parse_table_2118 : parse_row :=
  [STATE 2501 [sym__procAttribute]; STATE 15613 [sym_procAttribute];
   STATE 2040 [aux_sym_declProcFwd_repeat1]; ACTIONS 13667 [anon_sym_LBRACK];
   ACTIONS 7518 [aux_sym_ppUsesBlock_token1]; ACTIONS 3 [sym__space];
   ACTIONS 5 [sym_ppDirective]; ACTIONS 3 [sym_comment]; ACTIONS 1016 [sym_kDefault;
   sym_kNodefault]; ACTIONS 11641 [sym_kDispId]; ACTIONS 7518 [sym_kGeneric; sym_kOperator];
   ACTIONS 11643 [sym_kPublic]; ACTIONS 1016 [sym_kStatic; sym_kVirtual; sym_kAbstract;
   sym_kDynamic; sym_kOverride; sym_kOverload; sym_kReintroduce; sym_kStdcall; sym_kCdecl;
   sym_kCppdecl; sym_kPascal; sym_kRegister; sym_kMwpascal]; ACTIONS 11645 [sym_kMessage];
   ACTIONS 11647 [sym_kDeprecated]; ACTIONS 1016 [sym_kExperimental; sym_kPlatform;
   sym_kUnimplemented; sym_kCvar]; ACTIONS 11649 [sym_kExport]; ACTIONS 1016 [sym_kFar;
   sym_kNear; sym_kSafecall; sym_kAssembler; sym_kNostackframe; sym_kInterrupt; sym_kNoreturn;
   sym_kIocheck; sym_kLocal; sym_kHardfloat; sym_kSoftfloat; sym_kMs_abi_default;
   sym_kMs_abi_cdecl; sym_kSaveregisters; sym_kSysv_abi_default; sym_kSysv_abi_cdecl;
   sym_kVectorcall; sym_kVarargs; sym_kWinapi]; ACTIONS 11651 [sym_kAlias];
   ACTIONS 7518 [sym_kClass; sym_kConst; sym_kConstructor; sym_kDestructor; sym_kEnd;
   sym_kExports; sym_kFinalization; sym_kFunction; sym_kImplementation; sym_kInitialization];
   ACTIONS 1016 [sym_kInline]; ACTIONS 7518 [sym_kInterface; sym_kLabel; sym_kProcedure;
   sym_kProperty; sym_kResourcestring; sym_kThreadvar; sym_kType; sym_kUses; sym_kVar]].

(** State 2119. *)
Definition ts_parse_table_2119 : parse_row :=
  [STATE 2501 [sym__procAttribute]; STATE 15613 [sym_procAttribute];
   STATE 2040 [aux_sym_declProcFwd_repeat1]; ACTIONS 13670 [anon_sym_LBRACK];
   ACTIONS 7630 [aux_sym_ppUsesBlock_token1]; ACTIONS 3 [sym__space];
   ACTIONS 5 [sym_ppDirective]; ACTIONS 3 [sym_comment]; ACTIONS 1016 [sym_kDefault;
   sym_kNodefault]; ACTIONS 11641 [sym_kDispId]; ACTIONS 7630 [sym_kGeneric; sym_kOperator];
   ACTIONS 11643 [sym_kPublic]; ACTIONS 1016 [sym_kStatic; sym_kVirtual; sym_kAbstract;
   sym_kDynamic; sym_kOverride; sym_kOverload; sym_kReintroduce; sym_kStdcall; sym_kCdecl;
   sym_kCppdecl; sym_kPascal; sym_kRegister; sym_kMwpascal]; ACTIONS 11645 [sym_kMessage];
   ACTIONS 11647 [sym_kDeprecated]; ACTIONS 1016 [sym_kExperimental; sym_kPlatform;
   sym_kUnimplemented; sym_kCvar]; ACTIONS 11649 [sym_kExport]; ACTIONS 1016 [sym_kFar;
   sym_kNear; sym_kSafecall; sym_kAssembler; sym_kNostackframe; sym_kInterrupt; sym_kNoreturn;
   sym_kIocheck; sym_kLocal; sym_kHardfloat; sym_kSoftfloat; sym_kMs_abi_default;
   sym_kMs_abi_cdecl; sym_kSaveregisters; sym_kSysv_abi_default; sym_kSysv_abi_cdecl;
   sym_kVectorcall; sym_kVarargs; sym_kWinapi]; ACTIONS 11651 [sym_kAlias];
   ACTIONS 7630 [sym_kClass; sym_kConst; sym_kConstructor; sym_kDestructor; sym_kEnd;
   sym_kExports; sym_kFinalization; sym_kFunction; sym_kImplementation; sym_kInitialization];
   ACTIONS 1016 [sym_kInline]; ACTIONS 7630 [sym_kInterface; sym_kLabel; sym_kProcedure;
   sym_kProperty; sym_kResourcestring; sym_kThreadvar; sym_kType; sym_kUses; sym_kVar]].

(** State 2120. *)
Definition ts_parse_table_2120 : parse_row :=
  [STATE 2496 [sym__procAttribute]; STATE 14551 [sym_procAttribute];
   STATE 2112 [aux_sym_declProcFwd_repeat1]; ACTIONS 13673 [anon_sym_LBRACK];
   ACTIONS 9290 [aux_sym_ppUsesBlock_token1]; ACTIONS 3 [sym__space];
   ACTIONS 5 [sym_ppDirective]; ACTIONS 3 [sym_comment]; ACTIONS 1016 [sym_kDefault;
   sym_kNodefault]; ACTIONS 11641 [sym_kDispId]; ACTIONS 9290 [sym_kGeneric; sym_kOperator;
   sym_kPublished]; ACTIONS 9303 [sym_kPublic]; ACTIONS 9290 [sym_kProtected; sym_kPrivate;
   sym_kStrict; sym_kRequired; sym_kOptional]; ACTIONS 1016 [sym_kStatic; sym_kVirtual;
   sym_kAbstract; sym_kDynamic; sym_kOverride; sym_kOverload; sym_kReintroduce; sym_kStdcall;
   sym_kCdecl; sym_kCppdecl; sym_kPascal; sym_kRegister; sym_kMwpascal];
   ACTIONS 11645 [sym_kMessage]; ACTIONS 11647 [sym_kDeprecated];
   ACTIONS 1016 [sym_kExperimental; sym_kPlatform; sym_kUnimplemented; sym_kCvar];
   ACTIONS 11649 [sym_kExport]; ACTIONS 1016 [sym_kFar; sym_kNear; sym_kSafecall; sym_kAssembler;
   sym_kNostackframe; sym_kInterrupt; sym_kNoreturn; sym_kIocheck; sym_kLocal; sym_kHardfloat;
   sym_kSoftfloat; sym_kMs_abi_default; sym_kMs_abi_cdecl; sym_kSaveregisters;
   sym_kSysv_abi_default; sym_kSysv_abi_cdecl; sym_kVectorcall; sym_kVarargs; sym_kWinapi];
   ACTIONS 11651 [sym_kAlias]; ACTIONS 9290 [sym_kCase; sym_kClass; sym_kConst; sym_kConstructor;
   sym_kDestructor; sym_kEnd; sym_kFunction]; ACTIONS 1016 [sym_kInline];
   ACTIONS 9290 [sym_kProcedure; sym_kProperty; sym_kResourcestring; sym_kThreadvar; sym_kType;
   sym_kVar]].

(** State 2121. *)
Definition ts_parse_table_2121 : parse_row :=
  [STATE 2496 [sym__procAttribute]; STATE 14551 [sym_procAttribute];
   STATE 2144 [aux_sym_declProcFwd_repeat1]; ACTIONS 13676 [anon_sym_LBRACK];
   ACTIONS 9464 [aux_sym_ppUsesBlock_token1]; ACTIONS 3 [sym__space];
   ACTIONS 5 [sym_ppDirective]; ACTIONS 3 [sym_comment]; ACTIONS 1016 [sym_kDefault;
   sym_kNodefault]; ACTIONS 11641 [sym_kDispId]; ACTIONS 9464 [sym_kGeneric; sym_kOperator;
   sym_kPublished]; ACTIONS 9477 [sym_kPublic]; ACTIONS 9464 [sym_kProtected; sym_kPrivate;
   sym_kStrict; sym_kRequired; sym_kOptional]; ACTIONS 1016 [sym_kStatic; sym_kVirtual;
   sym_kAbstract; sym_kDynamic; sym_kOverride; sym_kOverload; sym_kReintroduce; sym_kStdcall;
   sym_kCdecl; sym_kCppdecl; sym_kPascal; sym_kRegister; sym_kMwpascal];
   ACTIONS 11645 [sym_kMessage]; ACTIONS 11647 [sym_kDeprecated];
   ACTIONS 1016 [sym_kExperimental; sym_kPlatform; sym_kUnimplemented; sym_kCvar];
   ACTIONS 11649 [sym_kExport]; ACTIONS 1016 [sym_kFar; sym_kNear; sym_kSafecall; sym_kAssembler;
   sym_kNostackframe; sym_kInterrupt; sym_kNoreturn; sym_kIocheck; sym_kLocal; sym_kHardfloat;
   sym_kSoftfloat; sym_kMs_abi_default; sym_kMs_abi_cdecl; sym_kSaveregisters;
   sym_kSysv_abi_default; sym_kSysv_abi_cdecl; sym_kVectorcall; sym_kVarargs; sym_kWinapi];
   ACTIONS 11651 [sym_kAlias]; ACTIONS 9464 [sym_kCase; sym_kClass; sym_kConst; sym_kConstructor;
   sym_kDestructor; sym_kEnd; sym_kFunction]; ACTIONS 1016 [sym_kInline];
   ACTIONS 9464 [sym_kProcedure; sym_kProperty; sym_kResourcestring; sym_kThreadvar; sym_kType;
   sym_kVar]].

(** State 2122. *)
Definition ts_parse_table_2122 : parse_row :=
  [STATE 2496 [sym__procAttribute]; STATE 14551 [sym_procAttribute];
   STATE 2145 [aux_sym_declProcFwd_repeat1]; ACTIONS 13679 [anon_sym_LBRACK];
   ACTIONS 9492 [aux_sym_ppUsesBlock_token1]; ACTIONS 3 [sym__space];
   ACTIONS 5 [sym_ppDirective]; ACTIONS 3 [sym_comment]; ACTIONS 1016 [sym_kDefault;
   sym_kNodefault]; ACTIONS 11641 [sym_kDispId]; ACTIONS 9492 [sym_kGeneric; sym_kOperator;
   sym_kPublished]; ACTIONS 9505 [sym_kPublic]; ACTIONS 9492 [sym_kProtected; sym_kPrivate;
   sym_kStrict; sym_kRequired; sym_kOptional]; ACTIONS 1016 [sym_kStatic; sym_kVirtual;
   sym_kAbstract; sym_kDynamic; sym_kOverride; sym_kOverload; sym_kReintroduce; sym_kStdcall;
   sym_kCdecl; sym_kCppdecl; sym_kPascal; sym_kRegister; sym_kMwpascal];
   ACTIONS 11645 [sym_kMessage]; ACTIONS 11647 [sym_kDeprecated];
   ACTIONS 1016 [sym_kExperimental; sym_kPlatform; sym_kUnimplemented; sym_kCvar];
   ACTIONS 11649 [sym_kExport]; ACTIONS 1016 [sym_kFar; sym_kNear; sym_kSafecall; sym_kAssembler;
   sym_kNostackframe; sym_kInterrupt; sym_kNoreturn; sym_kIocheck; sym_kLocal; sym_kHardfloat;
   sym_kSoftfloat; sym_kMs_abi_default; sym_kMs_abi_cdecl; sym_kSaveregisters;
   sym_kSysv_abi_default; sym_kSysv_abi_cdecl; sym_kVectorcall; sym_kVarargs; sym_kWinapi];
   ACTIONS 11651 [sym_kAlias]; ACTIONS 9492 [sym_kCase; sym_kClass; sym_kConst; sym_kConstructor;
   sym_kDestructor; sym_kEnd; sym_kFunction]; ACTIONS 1016 [sym_kInline];
   ACTIONS 9492 [sym_kProcedure; sym_kProperty; sym_kResourcestring; sym_kThreadvar; sym_kType;
   sym_kVar]].

(** State 2123. *)
Definition ts_parse_table_2123 : parse_row :=
  [STATE 2496 [sym__procAttribute]; STATE 14551 [sym_procAttribute];
   STATE 2112 [aux_sym_declProcFwd_repeat1]; ACTIONS 13682 [anon_sym_LBRACK];
   ACTIONS 9520 [aux_sym_ppUsesBlock_token1]; ACTIONS 3 [sym__space];
   ACTIONS 5 [sym_ppDirective]; ACTIONS 3 [sym_comment]; ACTIONS 1016 [sym_kDefault;
   sym_kNodefault]; ACTIONS 11641 [sym_kDispId]; ACTIONS 9520 [sym_kGeneric; sym_kOperator;
   sym_kPublished]; ACTIONS 9533 [sym_kPublic]; ACTIONS 9520 [sym_kProtected; sym_kPrivate;
   sym_kStrict; sym_kRequired; sym_kOptional]; ACTIONS 1016 [sym_kStatic; sym_kVirtual;
   sym_kAbstract; sym_kDynamic; sym_kOverride; sym_kOverload; sym_kReintroduce; sym_kStdcall;
   sym_kCdecl; sym_kCppdecl; sym_kPascal; sym_kRegister; sym_kMwpascal];
   ACTIONS 11645 [sym_kMessage]; ACTIONS 11647 [sym_kDeprecated];
   ACTIONS 1016 [sym_kExperimental; sym_kPlatform; sym_kUnimplemented; sym_kCvar];
   ACTIONS 11649 [sym_kExport]; ACTIONS 1016 [sym_kFar; sym_kNear; sym_kSafecall; sym_kAssembler;
   sym_kNostackframe; sym_kInterrupt; sym_kNoreturn; sym_kIocheck; sym_kLocal; sym_kHardfloat;
   sym_kSoftfloat; sym_kMs_abi_default; sym_kMs_abi_cdecl; sym_kSaveregisters;
   sym_kSysv_abi_default; sym_kSysv_abi_cdecl; sym_kVectorcall; sym_kVarargs; sym_kWinapi];
   ACTIONS 11651 [sym_kAlias]; ACTIONS 9520 [sym_kCase; sym_kClass; sym_kConst; sym_kConstructor;
   sym_kDestructor; sym_kEnd; sym_kFunction]; ACTIONS 1016 [sym_kInline];
   ACTIONS 9520 [sym_kProcedure; sym_kProperty; sym_kResourcestring; sym_kThreadvar; sym_kType;
   sym_kVar]].

(** State 2124. *)
Definition ts_parse_table_2124 : parse_row :=
  [STATE 2496 [sym__procAttribute]; STATE 14551 [sym_procAttribute];
   STATE 2112 [aux_sym_declProcFwd_repeat1]; ACTIONS 13685 [anon_sym_LBRACK];
   ACTIONS 9548 [aux_sym_ppUsesBlock_token1]; ACTIONS 3 [sym__space];
   ACTIONS 5 [sym_ppDirective]; ACTIONS 3 [sym_comment]; ACTIONS 1016 [sym_kDefault;
   sym_kNodefault]; ACTIONS 11641 [sym_kDispId]; ACTIONS 9548 [sym_kGeneric; sym_kOperator;
   sym_kPublished]; ACTIONS 9561 [sym_kPublic]; ACTIONS 9548 [sym_kProtected; sym_kPrivate;
   sym_kStrict; sym_kRequired; sym_kOptional]; ACTIONS 1016 [sym_kStatic; sym_kVirtual;
   sym_kAbstract; sym_kDynamic; sym_kOverride; sym_kOverload; sym_kReintroduce; sym_kStdcall;
   sym_kCdecl; sym_kCppdecl; sym_kPascal; sym_kRegister; sym_kMwpascal];
   ACTIONS 11645 [sym_kMessage]; ACTIONS 11647 [sym_kDeprecated];
   ACTIONS 1016 [sym_kExperimental; sym_kPlatform; sym_kUnimplemented; sym_kCvar];
   ACTIONS 11649 [sym_kExport]; ACTIONS 1016 [sym_kFar; sym_kNear; sym_kSafecall; sym_kAssembler;
   sym_kNostackframe; sym_kInterrupt; sym_kNoreturn; sym_kIocheck; sym_kLocal; sym_kHardfloat;
   sym_kSoftfloat; sym_kMs_abi_default; sym_kMs_abi_cdecl; sym_kSaveregisters;
   sym_kSysv_abi_default; sym_kSysv_abi_cdecl; sym_kVectorcall; sym_kVarargs; sym_kWinapi];
   ACTIONS 11651 [sym_kAlias]; ACTIONS 9548 [sym_kCase; sym_kClass; sym_kConst; sym_kConstructor;
   sym_kDestructor; sym_kEnd; sym_kFunction]; ACTIONS 1016 [sym_kInline];
   ACTIONS 9548 [sym_kProcedure; sym_kProperty; sym_kResourcestring; sym_kThreadvar; sym_kType;
   sym_kVar]].

(** State 2125. *)
Definition ts_parse_table_2125 : parse_row :=
  [STATE 2501 [sym__procAttribute]; STATE 15613 [sym_procAttribute];
   STATE 2143 [aux_sym_declProcFwd_repeat1]; ACTIONS 13688 [anon_sym_LBRACK];
   ACTIONS 7658 [aux_sym_ppUsesBlock_token1]; ACTIONS 3 [sym__space];
   ACTIONS 5 [sym_ppDirective]; ACTIONS 3 [sym_comment]; ACTIONS 1016 [sym_kDefault;
   sym_kNodefault]; ACTIONS 11641 [sym_kDispId]; ACTIONS 7658 [sym_kGeneric; sym_kOperator];
   ACTIONS 11643 [sym_kPublic]; ACTIONS 1016 [sym_kStatic; sym_kVirtual; sym_kAbstract;
   sym_kDynamic; sym_kOverride; sym_kOverload; sym_kReintroduce; sym_kStdcall; sym_kCdecl;
   sym_kCppdecl; sym_kPascal; sym_kRegister; sym_kMwpascal]; ACTIONS 11645 [sym_kMessage];
   ACTIONS 11647 [sym_kDeprecated]; ACTIONS 1016 [sym_kExperimental; sym_kPlatform;
   sym_kUnimplemented; sym_kCvar]; ACTIONS 11649 [sym_kExport]; ACTIONS 1016 [sym_kFar;
   sym_kNear; sym_kSafecall; sym_kAssembler; sym_kNostackframe; sym_kInterrupt; sym_kNoreturn;
   sym_kIocheck; sym_kLocal; sym_kHardfloat; sym_kSoftfloat; sym_kMs_abi_default;
   sym_kMs_abi_cdecl; sym_kSaveregisters; sym_kSysv_abi_default; sym_kSysv_abi_cdecl;
   sym_kVectorcall; sym_kVarargs; sym_kWinapi]; ACTIONS 11651 [sym_kAlias];
   ACTIONS 7658 [sym_kClass; sym_kConst; sym_kConstructor; sym_kDestructor; sym_kEnd;
   sym_kExports; sym_kFinalization; sym_kFunction; sym_kImplementation; sym_kInitialization];
   ACTIONS 1016 [sym_kInline]; ACTIONS 7658 [sym_kInterface; sym_kLabel; sym_kProcedure;
   sym_kProperty; sym_kResourcestring; sym_kThreadvar; sym_kType; sym_kUses; sym_kVar]].

(** State 2126. *)
Definition ts_parse_table_2126 : parse_row :=
  [STATE 2496 [sym__procAttribute]; STATE 14551 [sym_procAttribute];
   STATE 2112 [aux_sym_declProcFwd_repeat1]; ACTIONS 13691 [anon_sym_LBRACK];
   ACTIONS 9576 [aux_sym_ppUsesBlock_token1]; ACTIONS 3 [sym__space];
   ACTIONS 5 [sym_ppDirective]; ACTIONS 3 [sym_comment]; ACTIONS 1016 [sym_kDefault;
   sym_kNodefault]; ACTIONS 11641 [sym_kDispId]; ACTIONS 9576 [sym_kGeneric; sym_kOperator;
   sym_kPublished]; ACTIONS 9589 [sym_kPublic]; ACTIONS 9576 [sym_kProtected; sym_kPrivate;
   sym_kStrict; sym_kRequired; sym_kOptional]; ACTIONS 1016 [sym_kStatic; sym_kVirtual;
   sym_kAbstract; sym_kDynamic; sym_kOverride; sym_kOverload; sym_kReintroduce; sym_kStdcall;
   sym_kCdecl; sym_kCppdecl; sym_kPascal; sym_kRegister; sym_kMwpascal];
   ACTIONS 11645 [sym_kMessage]; ACTIONS 11647 [sym_kDeprecated];
   ACTIONS 1016 [sym_kExperimental; sym_kPlatform; sym_kUnimplemented; sym_kCvar];
   ACTIONS 11649 [sym_kExport]; ACTIONS 1016 [sym_kFar; sym_kNear; sym_kSafecall; sym_kAssembler;
   sym_kNostackframe; sym_kInterrupt; sym_kNoreturn; sym_kIocheck; sym_kLocal; sym_kHardfloat;
   sym_kSoftfloat; sym_kMs_abi_default; sym_kMs_abi_cdecl; sym_kSaveregisters;
   sym_kSysv_abi_default; sym_kSysv_abi_cdecl; sym_kVectorcall; sym_kVarargs; sym_kWinapi];
   ACTIONS 11651 [sym_kAlias]; ACTIONS 9576 [sym_kCase; sym_kClass; sym_kConst; sym_kConstructor;
   sym_kDestructor; sym_kEnd; sym_kFunction]; ACTIONS 1016 [sym_kInline];
   ACTIONS 9576 [sym_kProcedure; sym_kProperty; sym_kResourcestring; sym_kThreadvar; sym_kType;
   sym_kVar]].

(** State 2127. *)
Definition ts_parse_table_2127 : parse_row :=
  [STATE 2501 [sym__procAttribute]; STATE 15613 [sym_procAttribute];
   STATE 2130 [aux_sym_declProcFwd_repeat1]; ACTIONS 13694 [anon_sym_LBRACK];
   ACTIONS 8138 [aux_sym_ppUsesBlock_token1]; ACTIONS 3 [sym__space];
   ACTIONS 5 [sym_ppDirective]; ACTIONS 3 [sym_comment]; ACTIONS 1016 [sym_kDefault;
   sym_kNodefault]; ACTIONS 11641 [sym_kDispId]; ACTIONS 8138 [sym_kGeneric; sym_kOperator];
   ACTIONS 11643 [sym_kPublic]; ACTIONS 1016 [sym_kStatic; sym_kVirtual; sym_kAbstract;
   sym_kDynamic; sym_kOverride; sym_kOverload; sym_kReintroduce; sym_kStdcall; sym_kCdecl;
   sym_kCppdecl; sym_kPascal; sym_kRegister; sym_kMwpascal]; ACTIONS 11645 [sym_kMessage];
   ACTIONS 11647 [sym_kDeprecated]; ACTIONS 1016 [sym_kExperimental; sym_kPlatform;
   sym_kUnimplemented; sym_kCvar]; ACTIONS 11649 [sym_kExport]; ACTIONS 1016 [sym_kFar;
   sym_kNear; sym_kSafecall; sym_kAssembler; sym_kNostackframe; sym_kInterrupt; sym_kNoreturn;
   sym_kIocheck; sym_kLocal; sym_kHardfloat; sym_kSoftfloat; sym_kMs_abi_default;
   sym_kMs_abi_cdecl; sym_kSaveregisters; sym_kSysv_abi_default; sym_kSysv_abi_cdecl;
   sym_kVectorcall; sym_kVarargs; sym_kWinapi]; ACTIONS 11651 [sym_kAlias];
   ACTIONS 8138 [sym_kClass; sym_kConst; sym_kConstructor; sym_kDestructor; sym_kEnd;
   sym_kExports; sym_kFinalization; sym_kFunction; sym_kImplementation; sym_kInitialization];
   ACTIONS 1016 [sym_kInline]; ACTIONS 8138 [sym_kInterface; sym_kLabel; sym_kProcedure;
   sym_kProperty; sym_kResourcestring; sym_kThreadvar; sym_kType; sym_kUses; sym_kVar]].

(** State 2128. *)
Definition ts_parse_table_2128 : parse_row :=
  [STATE 2496 [sym__procAttribute]; STATE 14551 [sym_procAttribute];
   STATE 2068 [aux_sym_declProcFwd_repeat1]; ACTIONS 13697 [anon_sym_LBRACK];
   ACTIONS 8700 [aux_sym_ppUsesBlock_token1]; ACTIONS 3 [sym__space];
   ACTIONS 5 [sym_ppDirective]; ACTIONS 3 [sym_comment]; ACTIONS 1016 [sym_kDefault;
   sym_kNodefault]; ACTIONS 11641 [sym_kDispId]; ACTIONS 8700 [sym_kGeneric; sym_kOperator;
   sym_kPublished]; ACTIONS 8713 [sym_kPublic]; ACTIONS 8700 [sym_kProtected; sym_kPrivate;
   sym_kStrict; sym_kRequired; sym_kOptional]; ACTIONS 1016 [sym_kStatic; sym_kVirtual;
   sym_kAbstract; sym_kDynamic; sym_kOverride; sym_kOverload; sym_kReintroduce; sym_kStdcall;
   sym_kCdecl; sym_kCppdecl; sym_kPascal; sym_kRegister; sym_kMwpascal];
   ACTIONS 11645 [sym_kMessage]; ACTIONS 11647 [sym_kDeprecated];
   ACTIONS 1016 [sym_kExperimental; sym_kPlatform; sym_kUnimplemented; sym_kCvar];
   ACTIONS 11649 [sym_kExport]; ACTIONS 1016 [sym_kFar; sym_kNear; sym_kSafecall; sym_kAssembler;
   sym_kNostackframe; sym_kInterrupt; sym_kNoreturn; sym_kIocheck; sym_kLocal; sym_kHardfloat;
   sym_kSoftfloat; sym_kMs_abi_default; sym_kMs_abi_cdecl; sym_kSaveregisters;
   sym_kSysv_abi_default; sym_kSysv_abi_cdecl; sym_kVectorcall; sym_kVarargs; sym_kWinapi];
   ACTIONS 11651 [sym_kAlias]; ACTIONS 8700 [sym_kCase; sym_kClass; sym_kConst; sym_kConstructor;
   sym_kDestructor; sym_kEnd; sym_kFunction]; ACTIONS 1016 [sym_kInline];
   ACTIONS 8700 [sym_kProcedure; sym_kProperty; sym_kResourcestring; sym_kThreadvar; sym_kType;
   sym_kVar]].

(** State 2129. *)
Definition ts_parse_table_2129 : parse_row :=
  [STATE 2501 [sym__procAttribute]; STATE 15613 [sym_procAttribute];
   STATE 2136 [aux_sym_declProcFwd_repeat1]; ACTIONS 13700 [anon_sym_LBRACK];
   ACTIONS 8364 [aux_sym_ppUsesBlock_token1]; ACTIONS 3 [sym__space];
   ACTIONS 5 [sym_ppDirective]; ACTIONS 3 [sym_comment]; ACTIONS 1016 [sym_kDefault;
   sym_kNodefault]; ACTIONS 11641 [sym_kDispId]; ACTIONS 8364 [sym_kGeneric; sym_kOperator];
   ACTIONS 11643 [sym_kPublic]; ACTIONS 1016 [sym_kStatic; sym_kVirtual; sym_kAbstract;
   sym_kDynamic; sym_kOverride; sym_kOverload; sym_kReintroduce; sym_kStdcall; sym_kCdecl;
   sym_kCppdecl; sym_kPascal; sym_kRegister; sym_kMwpascal]; ACTIONS 11645 [sym_kMessage];
   ACTIONS 11647 [sym_kDeprecated]; ACTIONS 1016 [sym_kExperimental; sym_kPlatform;
   sym_kUnimplemented; sym_kCvar]; ACTIONS 11649 [sym_kExport]; ACTIONS 1016 [sym_kFar;
   sym_kNear; sym_kSafecall; sym_kAssembler; sym_kNostackframe; sym_kInterrupt; sym_kNoreturn;
   sym_kIocheck; sym_kLocal; sym_kHardfloat; sym_kSoftfloat; sym_kMs_abi_default;
   sym_kMs_abi_cdecl; sym_kSaveregisters; sym_kSysv_abi_default; sym_kSysv_abi_cdecl;
   sym_kVectorcall; sym_kVarargs; sym_kWinapi]; ACTIONS 11651 [sym_kAlias];
   ACTIONS 8364 [sym_kClass; sym_kConst; sym_kConstructor; sym_kDestructor; sym_kEnd;
   sym_kExports; sym_kFinalization; sym_kFunction; sym_kImplementation; sym_kInitialization];
   ACTIONS 1016 [sym_kInline]; ACTIONS 8364 [sym_kInterface; sym_kLabel; sym_kProcedure;
   sym_kProperty; sym_kResourcestring; sym_kThreadvar; sym_kType; sym_kUses; sym_kVar]].

(** State 2130. *)
Definition ts_parse_table_2130 : parse_row :=
  [STATE 2501 [sym__procAttribute]; STATE 15613 [sym_procAttribute];
   STATE 2040 [aux_sym_declProcFwd_repeat1]; ACTIONS 13703 [anon_sym_LBRACK];
   ACTIONS 8392 [aux_sym_ppUsesBlock_token1]; ACTIONS 3 [sym__space];
   ACTIONS 5 [sym_ppDirective]; ACTIONS 3 [sym_comment]; ACTIONS 1016 [sym_kDefault;
   sym_kNodefault]; ACTIONS 11641 [sym_kDispId]; ACTIONS 8392 [sym_kGeneric; sym_kOperator];
   ACTIONS 11643 [sym_kPublic]; ACTIONS 1016 [sym_kStatic; sym_kVirtual; sym_kAbstract;
   sym_kDynamic; sym_kOverride; sym_kOverload; sym_kReintroduce; sym_kStdcall; sym_kCdecl;
   sym_kCppdecl; sym_kPascal; sym_kRegister; sym_kMwpascal]; ACTIONS 11645 [sym_kMessage];
   ACTIONS 11647 [sym_kDeprecated]; ACTIONS 1016 [sym_kExperimental; sym_kPlatform;
   sym_kUnimplemented; sym_kCvar]; ACTIONS 11649 [sym_kExport]; ACTIONS 1016 [sym_kFar;
   sym_kNear; sym_kSafecall; sym_kAssembler; sym_kNostackframe; sym_kInterrupt; sym_kNoreturn;
   sym_kIocheck; sym_kLocal; sym_kHardfloat; sym_kSoftfloat; sym_kMs_abi_default;
   sym_kMs_abi_cdecl; sym_kSaveregisters; sym_kSysv_abi_default; sym_kSysv_abi_cdecl;
   sym_kVectorcall; sym_kVarargs; sym_kWinapi]; ACTIONS 11651 [sym_kAlias];
   ACTIONS 8392 [sym_kClass; sym_kConst; sym_kConstructor; sym_kDestructor; sym_kEnd;
   sym_kExports; sym_kFinalization; sym_kFunction; sym_kImplementation; sym_kInitialization];
   ACTIONS 1016 [sym_kInline]; ACTIONS 8392 [sym_kInterface; sym_kLabel; sym_kProcedure;
   sym_kProperty; sym_kResourcestring; sym_kThreadvar; sym_kType; sym_kUses; sym_kVar]].

(** State 2131. *)
Definition ts_parse_table_2131 : parse_row :=
  [STATE 2496 [sym__procAttribute]; STATE 14551 [sym_procAttribute];
   STATE 1994 [aux_sym_declProcFwd_repeat1]; ACTIONS 13706 [anon_sym_LBRACK];
   ACTIONS 9436 [aux_sym_ppUsesBlock_token1]; ACTIONS 3 [sym__space];
   ACTIONS 5 [sym_ppDirective]; ACTIONS 3 [sym_comment]; ACTIONS 1016 [sym_kDefault;
   sym_kNodefault]; ACTIONS 11641 [sym_kDispId]; ACTIONS 9436 [sym_kGeneric; sym_kOperator;
   sym_kPublished]; ACTIONS 9449 [sym_kPublic]; ACTIONS 9436 [sym_kProtected; sym_kPrivate;
   sym_kStrict; sym_kRequired; sym_kOptional]; ACTIONS 1016 [sym_kStatic; sym_kVirtual;
   sym_kAbstract; sym_kDynamic; sym_kOverride; sym_kOverload; sym_kReintroduce; sym_kStdcall;
   sym_kCdecl; sym_kCppdecl; sym_kPascal; sym_kRegister; sym_kMwpascal];
   ACTIONS 11645 [sym_kMessage]; ACTIONS 11647 [sym_kDeprecated];
   ACTIONS 1016 [sym_kExperimental; sym_kPlatform; sym_kUnimplemented; sym_kCvar];
   ACTIONS 11649 [sym_kExport]; ACTIONS 1016 [sym_kFar; sym_kNear; sym_kSafecall; sym_kAssembler;
   sym_kNostackframe; sym_kInterrupt; sym_kNoreturn; sym_kIocheck; sym_kLocal; sym_kHardfloat;
   sym_kSoftfloat; sym_kMs_abi_default; sym_kMs_abi_cdecl; sym_kSaveregisters;
   sym_kSysv_abi_default; sym_kSysv_abi_cdecl; sym_kVectorcall; sym_kVarargs; sym_kWinapi];
   ACTIONS 11651 [sym_kAlias]; ACTIONS 9436 [sym_kCase; sym_kClass; sym_kConst; sym_kConstructor;
   sym_kDestructor; sym_kEnd; sym_kFunction]; ACTIONS 1016 [sym_kInline];
   ACTIONS 9436 [sym_kProcedure; sym_kProperty; sym_kResourcestring; sym_kThreadvar; sym_kType;
   sym_kVar]].

(** State 2132. *)
Definition ts_parse_table_2132 : parse_row :=
  [STATE 2501 [sym__procAttribute]; STATE 15613 [sym_procAttribute];
   STATE 2040 [aux_sym_declProcFwd_repeat1]; ACTIONS 13709 [anon_sym_LBRACK];
   ACTIONS 7686 [aux_sym_ppUsesBlock_token1]; ACTIONS 3 [sym__space];
   ACTIONS 5 [sym_ppDirective]; ACTIONS 3 [sym_comment]; ACTIONS 1016 [sym_kDefault;
   sym_kNodefault]; ACTIONS 11641 [sym_kDispId]; ACTIONS 7686 [sym_kGeneric; sym_kOperator];
   ACTIONS 11643 [sym_kPublic]; ACTIONS 1016 [sym_kStatic; sym_kVirtual; sym_kAbstract;
   sym_kDynamic; sym_kOverride; sym_kOverload; sym_kReintroduce; sym_kStdcall; sym_kCdecl;
   sym_kCppdecl; sym_kPascal; sym_kRegister; sym_kMwpascal]; ACTIONS 11645 [sym_kMessage];
   ACTIONS 11647 [sym_kDeprecated]; ACTIONS 1016 [sym_kExperimental; sym_kPlatform;
   sym_kUnimplemented; sym_kCvar]; ACTIONS 11649 [sym_kExport]; ACTIONS 1016 [sym_kFar;
   sym_kNear; sym_kSafecall; sym_kAssembler; sym_kNostackframe; sym_kInterrupt; sym_kNoreturn;
   sym_kIocheck; sym_kLocal; sym_kHardfloat; sym_kSoftfloat; sym_kMs_abi_default;
   sym_kMs_abi_cdecl; sym_kSaveregisters; sym_kSysv_abi_default; sym_kSysv_abi_cdecl;
   sym_kVectorcall; sym_kVarargs; sym_kWinapi]; ACTIONS 11651 [sym_kAlias];
   ACTIONS 7686 [sym_kClass; sym_kConst; sym_kConstructor; sym_kDestructor; sym_kEnd;
   sym_kExports; sym_kFinalization; sym_kFunction; sym_kImplementation; sym_kInitialization];
   ACTIONS 1016 [sym_kInline]; ACTIONS 7686 [sym_kInterface; sym_kLabel; sym_kProcedure;
   sym_kProperty; sym_kResourcestring; sym_kThreadvar; sym_kType; sym_kUses; sym_kVar]].

(** State 2133. *)
Definition ts_parse_table_2133 : parse_row :=
  [STATE 2496 [sym__procAttribute]; STATE 14551 [sym_procAttribute];
   STATE 2112 [aux_sym_declProcFwd_repeat1]; ACTIONS 13712 [anon_sym_LBRACK];
   ACTIONS 7392 [aux_sym_ppUsesBlock_token1]; ACTIONS 3 [sym__space];
   ACTIONS 5 [sym_ppDirective]; ACTIONS 3 [sym_comment]; ACTIONS 1016 [sym_kDefault;
   sym_kNodefault]; ACTIONS 11641 [sym_kDispId]; ACTIONS 7392 [sym_kGeneric; sym_kOperator;
   sym_kPublished]; ACTIONS 7405 [sym_kPublic]; ACTIONS 7392 [sym_kProtected; sym_kPrivate;
   sym_kStrict; sym_kRequired; sym_kOptional]; ACTIONS 1016 [sym_kStatic; sym_kVirtual;
   sym_kAbstract; sym_kDynamic; sym_kOverride; sym_kOverload; sym_kReintroduce; sym_kStdcall;
   sym_kCdecl; sym_kCppdecl; sym_kPascal; sym_kRegister; sym_kMwpascal];
   ACTIONS 11645 [sym_kMessage]; ACTIONS 11647 [sym_kDeprecated];
   ACTIONS 1016 [sym_kExperimental; sym_kPlatform; sym_kUnimplemented; sym_kCvar];
   ACTIONS 11649 [sym_kExport]; ACTIONS 1016 [sym_kFar; sym_kNear; sym_kSafecall; sym_kAssembler;
   sym_kNostackframe; sym_kInterrupt; sym_kNoreturn; sym_kIocheck; sym_kLocal; sym_kHardfloat;
   sym_kSoftfloat; sym_kMs_abi_default; sym_kMs_abi_cdecl; sym_kSaveregisters;
   sym_kSysv_abi_default; sym_kSysv_abi_cdecl; sym_kVectorcall; sym_kVarargs; sym_kWinapi];
   ACTIONS 11651 [sym_kAlias]; ACTIONS 7392 [sym_kCase; sym_kClass; sym_kConst; sym_kConstructor;
   sym_kDestructor; sym_kEnd; sym_kFunction]; ACTIONS 1016 [sym_kInline];
   ACTIONS 7392 [sym_kProcedure; sym_kProperty; sym_kResourcestring; sym_kThreadvar; sym_kType;
   sym_kVar]].

(** State 2134. *)
Definition ts_parse_table_2134 : parse_row :=
  [STATE 2496 [sym__procAttribute]; STATE 14551 [sym_procAttribute];
   STATE 1998 [aux_sym_declProcFwd_repeat1]; ACTIONS 13715 [anon_sym_LBRACK];
   ACTIONS 9380 [aux_sym_ppUsesBlock_token1]; ACTIONS 3 [sym__space];
   ACTIONS 5 [sym_ppDirective]; ACTIONS 3 [sym_comment]; ACTIONS 1016 [sym_kDefault;
   sym_kNodefault]; ACTIONS 11641 [sym_kDispId]; ACTIONS 9380 [sym_kGeneric; sym_kOperator;
   sym_kPublished]; ACTIONS 9393 [sym_kPublic]; ACTIONS 9380 [sym_kProtected; sym_kPrivate;
   sym_kStrict; sym_kRequired; sym_kOptional]; ACTIONS 1016 [sym_kStatic; sym_kVirtual;
   sym_kAbstract; sym_kDynamic; sym_kOverride; sym_kOverload; sym_kReintroduce; sym_kStdcall;
   sym_kCdecl; sym_kCppdecl; sym_kPascal; sym_kRegister; sym_kMwpascal];
   ACTIONS 11645 [sym_kMessage]; ACTIONS 11647 [sym_kDeprecated];
   ACTIONS 1016 [sym_kExperimental; sym_kPlatform; sym_kUnimplemented; sym_kCvar];
   ACTIONS 11649 [sym_kExport]; ACTIONS 1016 [sym_kFar; sym_kNear; sym_kSafecall; sym_kAssembler;
   sym_kNostackframe; sym_kInterrupt; sym_kNoreturn; sym_kIocheck; sym_kLocal; sym_kHardfloat;
   sym_kSoftfloat; sym_kMs_abi_default; sym_kMs_abi_cdecl; sym_kSaveregisters;
   sym_kSysv_abi_default; sym_kSysv_abi_cdecl; sym_kVectorcall; sym_kVarargs; sym_kWinapi];
   ACTIONS 11651 [sym_kAlias]; ACTIONS 9380 [sym_kCase; sym_kClass; sym_kConst; sym_kConstructor;
   sym_kDestructor; sym_kEnd; sym_kFunction]; ACTIONS 1016 [sym_kInline];
   ACTIONS 9380 [sym_kProcedure; sym_kProperty; sym_kResourcestring; sym_kThreadvar; sym_kType;
   sym_kVar]].

(** State 2135. *)
Definition ts_parse_table_2135 : parse_row :=
  [STATE 2496 [sym__procAttribute]; STATE 14551 [sym_procAttribute];
   STATE 2112 [aux_sym_declProcFwd_repeat1]; ACTIONS 13718 [anon_sym_LBRACK];
   ACTIONS 7490 [aux_sym_ppUsesBlock_token1]; ACTIONS 3 [sym__space];
   ACTIONS 5 [sym_ppDirective]; ACTIONS 3 [sym_comment]; ACTIONS 1016 [sym_kDefault;
   sym_kNodefault]; ACTIONS 11641 [sym_kDispId]; ACTIONS 7490 [sym_kGeneric; sym_kOperator;
   sym_kPublished]; ACTIONS 7503 [sym_kPublic]; ACTIONS 7490 [sym_kProtected; sym_kPrivate;
   sym_kStrict; sym_kRequired; sym_kOptional]; ACTIONS 1016 [sym_kStatic; sym_kVirtual;
   sym_kAbstract; sym_kDynamic; sym_kOverride; sym_kOverload; sym_kReintroduce; sym_kStdcall;
   sym_kCdecl; sym_kCppdecl; sym_kPascal; sym_kRegister; sym_kMwpascal];
   ACTIONS 11645 [sym_kMessage]; ACTIONS 11647 [sym_kDeprecated];
   ACTIONS 1016 [sym_kExperimental; sym_kPlatform; sym_kUnimplemented; sym_kCvar];
   ACTIONS 11649 [sym_kExport]; ACTIONS 1016 [sym_kFar; sym_kNear; sym_kSafecall; sym_kAssembler;
   sym_kNostackframe; sym_kInterrupt; sym_kNoreturn; sym_kIocheck; sym_kLocal; sym_kHardfloat;
   sym_kSoftfloat; sym_kMs_abi_default; sym_kMs_abi_cdecl; sym_kSaveregisters;
   sym_kSysv_abi_default; sym_kSysv_abi_cdecl; sym_kVectorcall; sym_kVarargs; sym_kWinapi];
   ACTIONS 11651 [sym_kAlias]; ACTIONS 7490 [sym_kCase; sym_kClass; sym_kConst; sym_kConstructor;
   sym_kDestructor; sym_kEnd; sym_kFunction]; ACTIONS 1016 [sym_kInline];
   ACTIONS 7490 [sym_kProcedure; sym_kProperty; sym_kResourcestring; sym_kThreadvar; sym_kType;
   sym_kVar]].

(** State 2136. *)
Definition ts_parse_table_2136 : parse_row :=
  [STATE 2501 [sym__procAttribute]; STATE 15613 [sym_procAttribute];
   STATE 2040 [aux_sym_declProcFwd_repeat1]; ACTIONS 13721 [anon_sym_LBRACK];
   ACTIONS 8560 [aux_sym_ppUsesBlock_token1]; ACTIONS 3 [sym__space];
   ACTIONS 5 [sym_ppDirective]; ACTIONS 3 [sym_comment]; ACTIONS 1016 [sym_kDefault;
   sym_kNodefault]; ACTIONS 11641 [sym_kDispId]; ACTIONS 8560 [sym_kGeneric; sym_kOperator];
   ACTIONS 11643 [sym_kPublic]; ACTIONS 1016 [sym_kStatic; sym_kVirtual; sym_kAbstract;
   sym_kDynamic; sym_kOverride; sym_kOverload; sym_kReintroduce; sym_kStdcall; sym_kCdecl;
   sym_kCppdecl; sym_kPascal; sym_kRegister; sym_kMwpascal]; ACTIONS 11645 [sym_kMessage];
   ACTIONS 11647 [sym_kDeprecated]; ACTIONS 1016 [sym_kExperimental; sym_kPlatform;
   sym_kUnimplemented; sym_kCvar]; ACTIONS 11649 [sym_kExport]; ACTIONS 1016 [sym_kFar;
   sym_kNear; sym_kSafecall; sym_kAssembler; sym_kNostackframe; sym_kInterrupt; sym_kNoreturn;
   sym_kIocheck; sym_kLocal; sym_kHardfloat; sym_kSoftfloat; sym_kMs_abi_default;
   sym_kMs_abi_cdecl; sym_kSaveregisters; sym_kSysv_abi_default; sym_kSysv_abi_cdecl;
   sym_kVectorcall; sym_kVarargs; sym_kWinapi]; ACTIONS 11651 [sym_kAlias];
   ACTIONS 8560 [sym_kClass; sym_kConst; sym_kConstructor; sym_kDestructor; sym_kEnd;
   sym_kExports; sym_kFinalization; sym_kFunction; sym_kImplementation; sym_kInitialization];
   ACTIONS 1016 [sym_kInline]; ACTIONS 8560 [sym_kInterface; sym_kLabel; sym_kProcedure;
   sym_kProperty; sym_kResourcestring; sym_kThreadvar; sym_kType; sym_kUses; sym_kVar]].

(** State 2137. *)
Definition ts_parse_table_2137 : parse_row :=
  [STATE 2501 [sym__procAttribute]; STATE 15613 [sym_procAttribute];
   STATE 2040 [aux_sym_declProcFwd_repeat1]; ACTIONS 13724 [anon_sym_LBRACK];
   ACTIONS 7714 [aux_sym_ppUsesBlock_token1]; ACTIONS 3 [sym__space];
   ACTIONS 5 [sym_ppDirective]; ACTIONS 3 [sym_comment]; ACTIONS 1016 [sym_kDefault;
   sym_kNodefault]; ACTIONS 11641 [sym_kDispId]; ACTIONS 7714 [sym_kGeneric; sym_kOperator];
   ACTIONS 11643 [sym_kPublic]; ACTIONS 1016 [sym_kStatic; sym_kVirtual; sym_kAbstract;
   sym_kDynamic; sym_kOverride; sym_kOverload; sym_kReintroduce; sym_kStdcall; sym_kCdecl;
   sym_kCppdecl; sym_kPascal; sym_kRegister; sym_kMwpascal]; ACTIONS 11645 [sym_kMessage];
   ACTIONS 11647 [sym_kDeprecated]; ACTIONS 1016 [sym_kExperimental; sym_kPlatform;
   sym_kUnimplemented; sym_kCvar]; ACTIONS 11649 [sym_kExport]; ACTIONS 1016 [sym_kFar;
   sym_kNear; sym_kSafecall; sym_kAssembler; sym_kNostackframe; sym_kInterrupt; sym_kNoreturn;
   sym_kIocheck; sym_kLocal; sym_kHardfloat; sym_kSoftfloat; sym_kMs_abi_default;
   sym_kMs_abi_cdecl; sym_kSaveregisters; sym_kSysv_abi_default; sym_kSysv_abi_cdecl;
   sym_kVectorcall; sym_kVarargs; sym_kWinapi]; ACTIONS 11651 [sym_kAlias];
   ACTIONS 7714 [sym_kClass; sym_kConst; sym_kConstructor; sym_kDestructor; sym_kEnd;
   sym_kExports; sym_kFinalization; sym_kFunction; sym_kImplementation; sym_kInitialization];
   ACTIONS 1016 [sym_kInline]; ACTIONS 7714 [sym_kInterface; sym_kLabel; sym_kProcedure;
   sym_kProperty; sym_kResourcestring; sym_kThreadvar; sym_kType; sym_kUses; sym_kVar]].

(** State 2138. *)
Definition ts_parse_table_2138 : parse_row :=
  [STATE 2856 [sym__ppIf]; STATE 2638 [sym__procAttributeNoExt];
   STATE 2639 [sym__procAttributesPp]; STATE 15800 [sym_procAttribute];
   STATE 2114 [aux_sym__declProc_repeat1]; ACTIONS 13727 [anon_sym_LBRACK];
   ACTIONS 992 [aux_sym_ppUsesBlock_token1]; ACTIONS 3 [sym__space]; ACTIONS 5 [sym_ppDirective];
   ACTIONS 3 [sym_comment]; ACTIONS 1016 [sym_kDefault; sym_kNodefault];
   ACTIONS 11641 [sym_kDispId]; ACTIONS 985 [sym_kGeneric; sym_kOperator];
   ACTIONS 11643 [sym_kPublic]; ACTIONS 985 [sym_kForward]; ACTIONS 1016 [sym_kStatic;
   sym_kVirtual; sym_kAbstract; sym_kDynamic; sym_kOverride; sym_kOverload; sym_kReintroduce;
   sym_kStdcall; sym_kCdecl; sym_kCppdecl; sym_kPascal; sym_kRegister; sym_kMwpascal];
   ACTIONS 985 [sym_kExternal]; ACTIONS 11645 [sym_kMessage]; ACTIONS 11647 [sym_kDeprecated];
   ACTIONS 1016 [sym_kExperimental; sym_kPlatform; sym_kUnimplemented; sym_kCvar];
   ACTIONS 11649 [sym_kExport]; ACTIONS 1016 [sym_kFar; sym_kNear; sym_kSafecall; sym_kAssembler;
   sym_kNostackframe; sym_kInterrupt; sym_kNoreturn; sym_kIocheck; sym_kLocal; sym_kHardfloat;
   sym_kSoftfloat; sym_kMs_abi_default; sym_kMs_abi_cdecl; sym_kSaveregisters;
   sym_kSysv_abi_default; sym_kSysv_abi_cdecl; sym_kVectorcall; sym_kVarargs; sym_kWinapi];
   ACTIONS 11651 [sym_kAlias]; ACTIONS 985 [sym_kAsm; sym_kBegin; sym_kClass; sym_kConst;
   sym_kConstructor; sym_kDestructor; sym_kExports; sym_kFunction]; ACTIONS 1016 [sym_kInline];
   ACTIONS 985 [sym_kLabel; sym_kProcedure; sym_kResourcestring; sym_kThreadvar; sym_kType;
   sym_kUses; sym_kVar]].

(** State 2139. *)
Definition ts_parse_table_2139 : parse_row :=
  [STATE 2501 [sym__procAttribute]; STATE 15613 [sym_procAttribute];
   STATE 1977 [aux_sym_declProcFwd_repeat1]; ACTIONS 13730 [anon_sym_LBRACK];
   ACTIONS 7742 [aux_sym_ppUsesBlock_token1]; ACTIONS 3 [sym__space];
   ACTIONS 5 [sym_ppDirective]; ACTIONS 3 [sym_comment]; ACTIONS 1016 [sym_kDefault;
   sym_kNodefault]; ACTIONS 11641 [sym_kDispId]; ACTIONS 7742 [sym_kGeneric; sym_kOperator];
   ACTIONS 11643 [sym_kPublic]; ACTIONS 1016 [sym_kStatic; sym_kVirtual; sym_kAbstract;
   sym_kDynamic; sym_kOverride; sym_kOverload; sym_kReintroduce; sym_kStdcall; sym_kCdecl;
   sym_kCppdecl; sym_kPascal; sym_kRegister; sym_kMwpascal]; ACTIONS 11645 [sym_kMessage];
   ACTIONS 11647 [sym_kDeprecated]; ACTIONS 1016 [sym_kExperimental; sym_kPlatform;
   sym_kUnimplemented; sym_kCvar]; ACTIONS 11649 [sym_kExport]; ACTIONS 1016 [sym_kFar;
   sym_kNear; sym_kSafecall; sym_kAssembler; sym_kNostackframe; sym_kInterrupt; sym_kNoreturn;
   sym_kIocheck; sym_kLocal; sym_kHardfloat; sym_kSoftfloat; sym_kMs_abi_default;
   sym_kMs_abi_cdecl; sym_kSaveregisters; sym_kSysv_abi_default; sym_kSysv_abi_cdecl;
   sym_kVectorcall; sym_kVarargs; sym_kWinapi]; ACTIONS 11651 [sym_kAlias];
   ACTIONS 7742 [sym_kClass; sym_kConst; sym_kConstructor; sym_kDestructor; sym_kEnd;
   sym_kExports; sym_kFinalization; sym_kFunction; sym_kImplementation; sym_kInitialization];
   ACTIONS 1016 [sym_kInline]; ACTIONS 7742 [sym_kInterface; sym_kLabel; sym_kProcedure;
   sym_kProperty; sym_kResourcestring; sym_kThreadvar; sym_kType; sym_kUses; sym_kVar]].

(** State 2140. *)
Definition ts_parse_table_2140 : parse_row :=
  [STATE 2501 [sym__procAttribute]; STATE 15613 [sym_procAttribute];
   STATE 1978 [aux_sym_declProcFwd_repeat1]; ACTIONS 13733 [anon_sym_LBRACK];
   ACTIONS 7770 [aux_sym_ppUsesBlock_token1]; ACTIONS 3 [sym__space];
   ACTIONS 5 [sym_ppDirective]; ACTIONS 3 [sym_comment]; ACTIONS 1016 [sym_kDefault;
   sym_kNodefault]; ACTIONS 11641 [sym_kDispId]; ACTIONS 7770 [sym_kGeneric; sym_kOperator];
   ACTIONS 11643 [sym_kPublic]; ACTIONS 1016 [sym_kStatic; sym_kVirtual; sym_kAbstract;
   sym_kDynamic; sym_kOverride; sym_kOverload; sym_kReintroduce; sym_kStdcall; sym_kCdecl;
   sym_kCppdecl; sym_kPascal; sym_kRegister; sym_kMwpascal]; ACTIONS 11645 [sym_kMessage];
   ACTIONS 11647 [sym_kDeprecated]; ACTIONS 1016 [sym_kExperimental; sym_kPlatform;
   sym_kUnimplemented; sym_kCvar]; ACTIONS 11649 [sym_kExport]; ACTIONS 1016 [sym_kFar;
   sym_kNear; sym_kSafecall; sym_kAssembler; sym_kNostackframe; sym_kInterrupt; sym_kNoreturn;
   sym_kIocheck; sym_kLocal; sym_kHardfloat; sym_kSoftfloat; sym_kMs_abi_default;
   sym_kMs_abi_cdecl; sym_kSaveregisters; sym_kSysv_abi_default; sym_kSysv_abi_cdecl;
   sym_kVectorcall; sym_kVarargs; sym_kWinapi]; ACTIONS 11651 [sym_kAlias];
   ACTIONS 7770 [sym_kClass; sym_kConst; sym_kConstructor; sym_kDestructor; sym_kEnd;
   sym_kExports; sym_kFinalization; sym_kFunction; sym_kImplementation; sym_kInitialization];
   ACTIONS 1016 [sym_kInline]; ACTIONS 7770 [sym_kInterface; sym_kLabel; sym_kProcedure;
   sym_kProperty; sym_kResourcestring; sym_kThreadvar; sym_kType; sym_kUses; sym_kVar]].

(** State 2141. *)
Definition ts_parse_table_2141 : parse_row :=
  [STATE 2501 [sym__procAttribute]; STATE 15613 [sym_procAttribute];
   STATE 2040 [aux_sym_declProcFwd_repeat1]; ACTIONS 13736 [anon_sym_LBRACK];
   ACTIONS 7798 [aux_sym_ppUsesBlock_token1]; ACTIONS 3 [sym__space];
   ACTIONS 5 [sym_ppDirective]; ACTIONS 3 [sym_comment]; ACTIONS 1016 [sym_kDefault;
   sym_kNodefault]; ACTIONS 11641 [sym_kDispId]; ACTIONS 7798 [sym_kGeneric; sym_kOperator];
   ACTIONS 11643 [sym_kPublic]; ACTIONS 1016 [sym_kStatic; sym_kVirtual; sym_kAbstract;
   sym_kDynamic; sym_kOverride; sym_kOverload; sym_kReintroduce; sym_kStdcall; sym_kCdecl;
   sym_kCppdecl; sym_kPascal; sym_kRegister; sym_kMwpascal]; ACTIONS 11645 [sym_kMessage];
   ACTIONS 11647 [sym_kDeprecated]; ACTIONS 1016 [sym_kExperimental; sym_kPlatform;
   sym_kUnimplemented; sym_kCvar]; ACTIONS 11649 [sym_kExport]; ACTIONS 1016 [sym_kFar;
   sym_kNear; sym_kSafecall; sym_kAssembler; sym_kNostackframe; sym_kInterrupt; sym_kNoreturn;
   sym_kIocheck; sym_kLocal; sym_kHardfloat; sym_kSoftfloat; sym_kMs_abi_default;
   sym_kMs_abi_cdecl; sym_kSaveregisters; sym_kSysv_abi_default; sym_kSysv_abi_cdecl;
   sym_kVectorcall; sym_kVarargs; sym_kWinapi]; ACTIONS 11651 [sym_kAlias];
   ACTIONS 7798 [sym_kClass; sym_kConst; sym_kConstructor; sym_kDestructor; sym_kEnd;
   sym_kExports; sym_kFinalization; sym_kFunction; sym_kImplementation; sym_kInitialization];
   ACTIONS 1016 [sym_kInline]; ACTIONS 7798 [sym_kInterface; sym_kLabel; sym_kProcedure;
   sym_kProperty; sym_kResourcestring; sym_kThreadvar; sym_kType; sym_kUses; sym_kVar]].

(** State 2142. *)
Definition ts_parse_table_2142 : parse_row :=
  [STATE 2856 [sym__ppIf]; STATE 2638 [sym__procAttributeNoExt];
   STATE 2639 [sym__procAttributesPp]; STATE 15800 [sym_procAttribute];
   STATE 2002 [aux_sym__declProc_repeat1]; ACTIONS 13739 [anon_sym_LBRACK];
   ACTIONS 1390 [aux_sym_ppUsesBlock_token1]; ACTIONS 3 [sym__space];
   ACTIONS 5 [sym_ppDirective]; ACTIONS 3 [sym_comment]; ACTIONS 1016 [sym_kDefault;
   sym_kNodefault]; ACTIONS 11641 [sym_kDispId]; ACTIONS 1383 [sym_kGeneric; sym_kOperator];
   ACTIONS 11643 [sym_kPublic]; ACTIONS 1383 [sym_kForward]; ACTIONS 1016 [sym_kStatic;
   sym_kVirtual; sym_kAbstract; sym_kDynamic; sym_kOverride; sym_kOverload; sym_kReintroduce;
   sym_kStdcall; sym_kCdecl; sym_kCppdecl; sym_kPascal; sym_kRegister; sym_kMwpascal];
   ACTIONS 1383 [sym_kExternal]; ACTIONS 11645 [sym_kMessage]; ACTIONS 11647 [sym_kDeprecated];
   ACTIONS 1016 [sym_kExperimental; sym_kPlatform; sym_kUnimplemented; sym_kCvar];
   ACTIONS 11649 [sym_kExport]; ACTIONS 1016 [sym_kFar; sym_kNear; sym_kSafecall; sym_kAssembler;
   sym_kNostackframe; sym_kInterrupt; sym_kNoreturn; sym_kIocheck; sym_kLocal; sym_kHardfloat;
   sym_kSoftfloat; sym_kMs_abi_default; sym_kMs_abi_cdecl; sym_kSaveregisters;
   sym_kSysv_abi_default; sym_kSysv_abi_cdecl; sym_kVectorcall; sym_kVarargs; sym_kWinapi];
   ACTIONS 11651 [sym_kAlias]; ACTIONS 1383 [sym_kAsm; sym_kBegin; sym_kClass; sym_kConst;
   sym_kConstructor; sym_kDestructor; sym_kExports; sym_kFunction]; ACTIONS 1016 [sym_kInline];
   ACTIONS 1383 [sym_kLabel; sym_kProcedure; sym_kResourcestring; sym_kThreadvar; sym_kType;
   sym_kUses; sym_kVar]].

(** State 2143. *)
Definition ts_parse_table_2143 : parse_row :=
  [STATE 2501 [sym__procAttribute]; STATE 15613 [sym_procAttribute];
   STATE 2040 [aux_sym_declProcFwd_repeat1]; ACTIONS 13742 [anon_sym_LBRACK];
   ACTIONS 7826 [aux_sym_ppUsesBlock_token1]; ACTIONS 3 [sym__space];
   ACTIONS 5 [sym_ppDirective]; ACTIONS 3 [sym_comment]; ACTIONS 1016 [sym_kDefault;
   sym_kNodefault]; ACTIONS 11641 [sym_kDispId]; ACTIONS 7826 [sym_kGeneric; sym_kOperator];
   ACTIONS 11643 [sym_kPublic]; ACTIONS 1016 [sym_kStatic; sym_kVirtual; sym_kAbstract;
   sym_kDynamic; sym_kOverride; sym_kOverload; sym_kReintroduce; sym_kStdcall; sym_kCdecl;
   sym_kCppdecl; sym_kPascal; sym_kRegister; sym_kMwpascal]; ACTIONS 11645 [sym_kMessage];
   ACTIONS 11647 [sym_kDeprecated]; ACTIONS 1016 [sym_kExperimental; sym_kPlatform;
   sym_kUnimplemented; sym_kCvar]; ACTIONS 11649 [sym_kExport]; ACTIONS 1016 [sym_kFar;
   sym_kNear; sym_kSafecall; sym_kAssembler; sym_kNostackframe; sym_kInterrupt; sym_kNoreturn;
   sym_kIocheck; sym_kLocal; sym_kHardfloat; sym_kSoftfloat; sym_kMs_abi_default;
   sym_kMs_abi_cdecl; sym_kSaveregisters; sym_kSysv_abi_default; sym_kSysv_abi_cdecl;
   sym_kVectorcall; sym_kVarargs; sym_kWinapi]; ACTIONS 11651 [sym_kAlias];
   ACTIONS 7826 [sym_kClass; sym_kConst; sym_kConstructor; sym_kDestructor; sym_kEnd;
   sym_kExports; sym_kFinalization; sym_kFunction; sym_kImplementation; sym_kInitialization];
   ACTIONS 1016 [sym_kInline]; ACTIONS 7826 [sym_kInterface; sym_kLabel; sym_kProcedure;
   sym_kProperty; sym_kResourcestring; sym_kThreadvar; sym_kType; sym_kUses; sym_kVar]].

(** State 2144. *)
Definition ts_parse_table_2144 : parse_row :=
  [STATE 2496 [sym__procAttribute]; STATE 14551 [sym_procAttribute];
   STATE 2112 [aux_sym_declProcFwd_repeat1]; ACTIONS 13745 [anon_sym_LBRACK];
   ACTIONS 7518 [aux_sym_ppUsesBlock_token1]; ACTIONS 3 [sym__space];
   ACTIONS 5 [sym_ppDirective]; ACTIONS 3 [sym_comment]; ACTIONS 1016 [sym_kDefault;
   sym_kNodefault]; ACTIONS 11641 [sym_kDispId]; ACTIONS 7518 [sym_kGeneric; sym_kOperator;
   sym_kPublished]; ACTIONS 7531 [sym_kPublic]; ACTIONS 7518 [sym_kProtected; sym_kPrivate;
   sym_kStrict; sym_kRequired; sym_kOptional]; ACTIONS 1016 [sym_kStatic; sym_kVirtual;
   sym_kAbstract; sym_kDynamic; sym_kOverride; sym_kOverload; sym_kReintroduce; sym_kStdcall;
   sym_kCdecl; sym_kCppdecl; sym_kPascal; sym_kRegister; sym_kMwpascal];
   ACTIONS 11645 [sym_kMessage]; ACTIONS 11647 [sym_kDeprecated];
   ACTIONS 1016 [sym_kExperimental; sym_kPlatform; sym_kUnimplemented; sym_kCvar];
   ACTIONS 11649 [sym_kExport]; ACTIONS 1016 [sym_kFar; sym_kNear; sym_kSafecall; sym_kAssembler;
   sym_kNostackframe; sym_kInterrupt; sym_kNoreturn; sym_kIocheck; sym_kLocal; sym_kHardfloat;
   sym_kSoftfloat; sym_kMs_abi_default; sym_kMs_abi_cdecl; sym_kSaveregisters;
   sym_kSysv_abi_default; sym_kSysv_abi_cdecl; sym_kVectorcall; sym_kVarargs; sym_kWinapi];
   ACTIONS 11651 [sym_kAlias]; ACTIONS 7518 [sym_kCase; sym_kClass; sym_kConst; sym_kConstructor;
   sym_kDestructor; sym_kEnd; sym_kFunction]; ACTIONS 1016 [sym_kInline];
   ACTIONS 7518 [sym_kProcedure; sym_kProperty; sym_kResourcestring; sym_kThreadvar; sym_kType;
   sym_kVar]].

(** State 2145. *)
Definition ts_parse_table_2145 : parse_row :=
  [STATE 2496 [sym__procAttribute]; STATE 14551 [sym_procAttribute];
   STATE 2112 [aux_sym_declProcFwd_repeat1]; ACTIONS 13748 [anon_sym_LBRACK];
   ACTIONS 7630 [aux_sym_ppUsesBlock_token1]; ACTIONS 3 [sym__space];
   ACTIONS 5 [sym_ppDirective]; ACTIONS 3 [sym_comment]; ACTIONS 1016 [sym_kDefault;
   sym_kNodefault]; ACTIONS 11641 [sym_kDispId]; ACTIONS 7630 [sym_kGeneric; sym_kOperator;
   sym_kPublished]; ACTIONS 7643 [sym_kPublic]; ACTIONS 7630 [sym_kProtected; sym_kPrivate;
   sym_kStrict; sym_kRequired; sym_kOptional]; ACTIONS 1016 [sym_kStatic; sym_kVirtual;
   sym_kAbstract; sym_kDynamic; sym_kOverride; sym_kOverload; sym_kReintroduce; sym_kStdcall;
   sym_kCdecl; sym_kCppdecl; sym_kPascal; sym_kRegister; sym_kMwpascal];
   ACTIONS 11645 [sym_kMessage]; ACTIONS 11647 [sym_kDeprecated];
   ACTIONS 1016 [sym_kExperimental; sym_kPlatform; sym_kUnimplemented; sym_kCvar];
   ACTIONS 11649 [sym_kExport]; ACTIONS 1016 [sym_kFar; sym_kNear; sym_kSafecall; sym_kAssembler;
   sym_kNostackframe; sym_kInterrupt; sym_kNoreturn; sym_kIocheck; sym_kLocal; sym_kHardfloat;
   sym_kSoftfloat; sym_kMs_abi_default; sym_kMs_abi_cdecl; sym_kSaveregisters;
   sym_kSysv_abi_default; sym_kSysv_abi_cdecl; sym_kVectorcall; sym_kVarargs; sym_kWinapi];
   ACTIONS 11651 [sym_kAlias]; ACTIONS 7630 [sym_kCase; sym_kClass; sym_kConst; sym_kConstructor;
   sym_kDestructor; sym_kEnd; sym_kFunction]; ACTIONS 1016 [sym_kInline];
   ACTIONS 7630 [sym_kProcedure; sym_kProperty; sym_kResourcestring; sym_kThreadvar; sym_kType;
   sym_kVar]].

(** State 2146. *)
Definition ts_parse_table_2146 : parse_row :=
  [STATE 2496 [sym__procAttribute]; STATE 14551 [sym_procAttribute];
   STATE 2085 [aux_sym_declProcFwd_repeat1]; ACTIONS 13751 [anon_sym_LBRACK];
   ACTIONS 8110 [aux_sym_ppUsesBlock_token1]; ACTIONS 3 [sym__space];
   ACTIONS 5 [sym_ppDirective]; ACTIONS 3 [sym_comment]; ACTIONS 1016 [sym_kDefault;
   sym_kNodefault]; ACTIONS 11641 [sym_kDispId]; ACTIONS 8110 [sym_kGeneric; sym_kOperator;
   sym_kPublished]; ACTIONS 8123 [sym_kPublic]; ACTIONS 8110 [sym_kProtected; sym_kPrivate;
   sym_kStrict; sym_kRequired; sym_kOptional]; ACTIONS 1016 [sym_kStatic; sym_kVirtual;
   sym_kAbstract; sym_kDynamic; sym_kOverride; sym_kOverload; sym_kReintroduce; sym_kStdcall;
   sym_kCdecl; sym_kCppdecl; sym_kPascal; sym_kRegister; sym_kMwpascal];
   ACTIONS 11645 [sym_kMessage]; ACTIONS 11647 [sym_kDeprecated];
   ACTIONS 1016 [sym_kExperimental; sym_kPlatform; sym_kUnimplemented; sym_kCvar];
   ACTIONS 11649 [sym_kExport]; ACTIONS 1016 [sym_kFar; sym_kNear; sym_kSafecall; sym_kAssembler;
   sym_kNostackframe; sym_kInterrupt; sym_kNoreturn; sym_kIocheck; sym_kLocal; sym_kHardfloat;
   sym_kSoftfloat; sym_kMs_abi_default; sym_kMs_abi_cdecl; sym_kSaveregisters;
   sym_kSysv_abi_default; sym_kSysv_abi_cdecl; sym_kVectorcall; sym_kVarargs; sym_kWinapi];
   ACTIONS 11651 [sym_kAlias]; ACTIONS 8110 [sym_kCase; sym_kClass; sym_kConst; sym_kConstructor;
   sym_kDestructor; sym_kEnd; sym_kFunction]; ACTIONS 1016 [sym_kInline];
   ACTIONS 8110 [sym_kProcedure; sym_kProperty; sym_kResourcestring; sym_kThreadvar; sym_kType;
   sym_kVar]].

(** State 2147. *)
Definition ts_parse_table_2147 : parse_row :=
  [STATE 2496 [sym__procAttribute]; STATE 14551 [sym_procAttribute];
   STATE 2112 [aux_sym_declProcFwd_repeat1]; ACTIONS 13754 [anon_sym_LBRACK];
   ACTIONS 8166 [aux_sym_ppUsesBlock_token1]; ACTIONS 3 [sym__space];
   ACTIONS 5 [sym_ppDirective]; ACTIONS 3 [sym_comment]; ACTIONS 1016 [sym_kDefault;
   sym_kNodefault]; ACTIONS 11641 [sym_kDispId]; ACTIONS 8166 [sym_kGeneric; sym_kOperator;
   sym_kPublished]; ACTIONS 8179 [sym_kPublic]; ACTIONS 8166 [sym_kProtected; sym_kPrivate;
   sym_kStrict; sym_kRequired; sym_kOptional]; ACTIONS 1016 [sym_kStatic; sym_kVirtual;
   sym_kAbstract; sym_kDynamic; sym_kOverride; sym_kOverload; sym_kReintroduce; sym_kStdcall;
   sym_kCdecl; sym_kCppdecl; sym_kPascal; sym_kRegister; sym_kMwpascal];
   ACTIONS 11645 [sym_kMessage]; ACTIONS 11647 [sym_kDeprecated];
   ACTIONS 1016 [sym_kExperimental; sym_kPlatform; sym_kUnimplemented; sym_kCvar];
   ACTIONS 11649 [sym_kExport]; ACTIONS 1016 [sym_kFar; sym_kNear; sym_kSafecall; sym_kAssembler;
   sym_kNostackframe; sym_kInterrupt; sym_kNoreturn; sym_kIocheck; sym_kLocal; sym_kHardfloat;
   sym_kSoftfloat; sym_kMs_abi_default; sym_kMs_abi_cdecl; sym_kSaveregisters;
   sym_kSysv_abi_default; sym_kSysv_abi_cdecl; sym_kVectorcall; sym_kVarargs; sym_kWinapi];
   ACTIONS 11651 [sym_kAlias]; ACTIONS 8166 [sym_kCase; sym_kClass; sym_kConst; sym_kConstructor;
   sym_kDestructor; sym_kEnd; sym_kFunction]; ACTIONS 1016 [sym_kInline];
   ACTIONS 8166 [sym_kProcedure; sym_kProperty; sym_kResourcestring; sym_kThreadvar; sym_kType;
   sym_kVar]].

(** State 2148. *)
Definition ts_parse_table_2148 : parse_row :=
  [STATE 2501 [sym__procAttribute]; STATE 15613 [sym_procAttribute];
   STATE 2093 [aux_sym_declProcFwd_repeat1]; ACTIONS 13757 [anon_sym_LBRACK];
   ACTIONS 9038 [aux_sym_ppUsesBlock_token1]; ACTIONS 3 [sym__space];
   ACTIONS 5 [sym_ppDirective]; ACTIONS 3 [sym_comment]; ACTIONS 1016 [sym_kDefault;
   sym_kNodefault]; ACTIONS 11641 [sym_kDispId]; ACTIONS 9038 [sym_kGeneric; sym_kOperator];
   ACTIONS 11643 [sym_kPublic]; ACTIONS 1016 [sym_kStatic; sym_kVirtual; sym_kAbstract;
   sym_kDynamic; sym_kOverride; sym_kOverload; sym_kReintroduce; sym_kStdcall; sym_kCdecl;
   sym_kCppdecl; sym_kPascal; sym_kRegister; sym_kMwpascal]; ACTIONS 11645 [sym_kMessage];
   ACTIONS 11647 [sym_kDeprecated]; ACTIONS 1016 [sym_kExperimental; sym_kPlatform;
   sym_kUnimplemented; sym_kCvar]; ACTIONS 11649 [sym_kExport]; ACTIONS 1016 [sym_kFar;
   sym_kNear; sym_kSafecall; sym_kAssembler; sym_kNostackframe; sym_kInterrupt; sym_kNoreturn;
   sym_kIocheck; sym_kLocal; sym_kHardfloat; sym_kSoftfloat; sym_kMs_abi_default;
   sym_kMs_abi_cdecl; sym_kSaveregisters; sym_kSysv_abi_default; sym_kSysv_abi_cdecl;
   sym_kVectorcall; sym_kVarargs; sym_kWinapi]; ACTIONS 11651 [sym_kAlias];
   ACTIONS 9038 [sym_kClass; sym_kConst; sym_kConstructor; sym_kDestructor; sym_kEnd;
   sym_kExports; sym_kFinalization; sym_kFunction; sym_kImplementation; sym_kInitialization];
   ACTIONS 1016 [sym_kInline]; ACTIONS 9038 [sym_kInterface; sym_kLabel; sym_kProcedure;
   sym_kProperty; sym_kResourcestring; sym_kThreadvar; sym_kType; sym_kUses; sym_kVar]].

(** State 2149. *)
Definition ts_parse_table_2149 : parse_row :=
  [STATE 2656 [sym__procAttribute]; STATE 14883 [sym_procAttribute];
   STATE 2174 [sym_procExternal; aux_sym_declVar_repeat2]; ACTIONS 13760 [anon_sym_LBRACK];
   ACTIONS 6677 [aux_sym_ppUsesBlock_token1]; ACTIONS 3 [sym__space];
   ACTIONS 5 [sym_ppDirective]; ACTIONS 3 [sym_comment]; ACTIONS 6677 [sym_identifier];
   ACTIONS 6684 [sym_kDefault; sym_kNodefault]; ACTIONS 6687 [sym_kDispId];
   ACTIONS 6677 [sym_kGeneric; sym_kOperator]; ACTIONS 6690 [sym_kPublic];
   ACTIONS 6684 [sym_kStatic; sym_kVirtual; sym_kAbstract; sym_kDynamic; sym_kOverride;
   sym_kOverload; sym_kReintroduce; sym_kStdcall; sym_kCdecl; sym_kCppdecl; sym_kPascal;
   sym_kRegister; sym_kMwpascal]; ACTIONS 13763 [sym_kExternal]; ACTIONS 6693 [sym_kMessage];
   ACTIONS 6696 [sym_kDeprecated]; ACTIONS 6684 [sym_kExperimental; sym_kPlatform;
   sym_kUnimplemented; sym_kCvar]; ACTIONS 6699 [sym_kExport]; ACTIONS 6684 [sym_kFar; sym_kNear;
   sym_kSafecall; sym_kAssembler; sym_kNostackframe; sym_kInterrupt; sym_kNoreturn; sym_kIocheck;
   sym_kLocal; sym_kHardfloat; sym_kSoftfloat; sym_kMs_abi_default; sym_kMs_abi_cdecl;
   sym_kSaveregisters; sym_kSysv_abi_default; sym_kSysv_abi_cdecl; sym_kVectorcall; sym_kVarargs;
   sym_kWinapi]; ACTIONS 6702 [sym_kAlias]; ACTIONS 6677 [sym_kBegin; sym_kClass; sym_kConst;
   sym_kConstructor; sym_kDestructor; sym_kEnd; sym_kExports; sym_kFunction];
   ACTIONS 1016 [sym_kInline]; ACTIONS 6677 [sym_kLabel; sym_kProcedure; sym_kResourcestring;
   sym_kThreadvar; sym_kType; sym_kUses; sym_kVar]].

(** State 2150. *)
Definition ts_parse_table_2150 : parse_row :=
  [STATE 2656 [sym__procAttribute]; STATE 14883 [sym_procAttribute];
   STATE 2338 [sym_procExternal; aux_sym_declVar_repeat2]; ACTIONS 13765 [anon_sym_LBRACK];
   ACTIONS 6736 [aux_sym_ppUsesBlock_token1]; ACTIONS 3 [sym__space];
   ACTIONS 5 [sym_ppDirective]; ACTIONS 3 [sym_comment]; ACTIONS 6736 [sym_identifier];
   ACTIONS 6743 [sym_kDefault; sym_kNodefault]; ACTIONS 6746 [sym_kDispId];
   ACTIONS 6736 [sym_kGeneric; sym_kOperator]; ACTIONS 6749 [sym_kPublic];
   ACTIONS 6743 [sym_kStatic; sym_kVirtual; sym_kAbstract; sym_kDynamic; sym_kOverride;
   sym_kOverload; sym_kReintroduce; sym_kStdcall; sym_kCdecl; sym_kCppdecl; sym_kPascal;
   sym_kRegister; sym_kMwpascal]; ACTIONS 13763 [sym_kExternal]; ACTIONS 6752 [sym_kMessage];
   ACTIONS 6755 [sym_kDeprecated]; ACTIONS 6743 [sym_kExperimental; sym_kPlatform;
   sym_kUnimplemented; sym_kCvar]; ACTIONS 6758 [sym_kExport]; ACTIONS 6743 [sym_kFar; sym_kNear;
   sym_kSafecall; sym_kAssembler; sym_kNostackframe; sym_kInterrupt; sym_kNoreturn; sym_kIocheck;
   sym_kLocal; sym_kHardfloat; sym_kSoftfloat; sym_kMs_abi_default; sym_kMs_abi_cdecl;
   sym_kSaveregisters; sym_kSysv_abi_default; sym_kSysv_abi_cdecl; sym_kVectorcall; sym_kVarargs;
   sym_kWinapi]; ACTIONS 6761 [sym_kAlias]; ACTIONS 6736 [sym_kBegin; sym_kClass; sym_kConst;
   sym_kConstructor; sym_kDestructor; sym_kEnd; sym_kExports; sym_kFunction];
   ACTIONS 1016 [sym_kInline]; ACTIONS 6736 [sym_kLabel; sym_kProcedure; sym_kResourcestring;
   sym_kThreadvar; sym_kType; sym_kUses; sym_kVar]].

(** State 2151. *)
Definition ts_parse_table_2151 : parse_row :=
  [STATE 2656 [sym__procAttribute]; STATE 14883 [sym_procAttribute];
   STATE 2338 [sym_procExternal; aux_sym_declVar_repeat2]; ACTIONS 13768 [anon_sym_LBRACK];
   ACTIONS 6767 [aux_sym_ppUsesBlock_token1]; ACTIONS 3 [sym__space];
   ACTIONS 5 [sym_ppDirective]; ACTIONS 3 [sym_comment]; ACTIONS 6767 [sym_identifier];
   ACTIONS 6774 [sym_kDefault; sym_kNodefault]; ACTIONS 6777 [sym_kDispId];
   ACTIONS 6767 [sym_kGeneric; sym_kOperator]; ACTIONS 6780 [sym_kPublic];
   ACTIONS 6774 [sym_kStatic; sym_kVirtual; sym_kAbstract; sym_kDynamic; sym_kOverride;
   sym_kOverload; sym_kReintroduce; sym_kStdcall; sym_kCdecl; sym_kCppdecl; sym_kPascal;
   sym_kRegister; sym_kMwpascal]; ACTIONS 13763 [sym_kExternal]; ACTIONS 6783 [sym_kMessage];
   ACTIONS 6786 [sym_kDeprecated]; ACTIONS 6774 [sym_kExperimental; sym_kPlatform;
   sym_kUnimplemented; sym_kCvar]; ACTIONS 6789 [sym_kExport]; ACTIONS 6774 [sym_kFar; sym_kNear;
   sym_kSafecall; sym_kAssembler; sym_kNostackframe; sym_kInterrupt; sym_kNoreturn; sym_kIocheck;
   sym_kLocal; sym_kHardfloat; sym_kSoftfloat; sym_kMs_abi_default; sym_kMs_abi_cdecl;
   sym_kSaveregisters; sym_kSysv_abi_default; sym_kSysv_abi_cdecl; sym_kVectorcall; sym_kVarargs;
   sym_kWinapi]; ACTIONS 6792 [sym_kAlias]; ACTIONS 6767 [sym_kBegin; sym_kClass; sym_kConst;
   sym_kConstructor; sym_kDestructor; sym_kEnd; sym_kExports; sym_kFunction];
   ACTIONS 1016 [sym_kInline]; ACTIONS 6767 [sym_kLabel; sym_kProcedure; sym_kResourcestring;
   sym_kThreadvar; sym_kType; sym_kUses; sym_kVar]].

(** State 2152. *)
Definition ts_parse_table_2152 : parse_row :=
  [STATE 2656 [sym__procAttribute]; STATE 14883 [sym_procAttribute];
   STATE 2176 [sym_procExternal; aux_sym_declVar_repeat2]; ACTIONS 13771 [anon_sym_LBRACK];
   ACTIONS 6823 [aux_sym_ppUsesBlock_token1]; ACTIONS 3 [sym__space];
   ACTIONS 5 [sym_ppDirective]; ACTIONS 3 [sym_comment]; ACTIONS 6823 [sym_identifier];
   ACTIONS 6830 [sym_kDefault; sym_kNodefault]; ACTIONS 6833 [sym_kDispId];
   ACTIONS 6823 [sym_kGeneric; sym_kOperator]; ACTIONS 6836 [sym_kPublic];
   ACTIONS 6830 [sym_kStatic; sym_kVirtual; sym_kAbstract; sym_kDynamic; sym_kOverride;
   sym_kOverload; sym_kReintroduce; sym_kStdcall; sym_kCdecl; sym_kCppdecl; sym_kPascal;
   sym_kRegister; sym_kMwpascal]; ACTIONS 13763 [sym_kExternal]; ACTIONS 6839 [sym_kMessage];
   ACTIONS 6842 [sym_kDeprecated]; ACTIONS 6830 [sym_kExperimental; sym_kPlatform;
   sym_kUnimplemented; sym_kCvar]; ACTIONS 6845 [sym_kExport]; ACTIONS 6830 [sym_kFar; sym_kNear;
   sym_kSafecall; sym_kAssembler; sym_kNostackframe; sym_kInterrupt; sym_kNoreturn; sym_kIocheck;
   sym_kLocal; sym_kHardfloat; sym_kSoftfloat; sym_kMs_abi_default; sym_kMs_abi_cdecl;
   sym_kSaveregisters; sym_kSysv_abi_default; sym_kSysv_abi_cdecl; sym_kVectorcall; sym_kVarargs;
   sym_kWinapi]; ACTIONS 6848 [sym_kAlias]; ACTIONS 6823 [sym_kBegin; sym_kClass; sym_kConst;
   sym_kConstructor; sym_kDestructor; sym_kEnd; sym_kExports; sym_kFunction];
   ACTIONS 1016 [sym_kInline]; ACTIONS 6823 [sym_kLabel; sym_kProcedure; sym_kResourcestring;
   sym_kThreadvar; sym_kType; sym_kUses; sym_kVar]].

(** State 2153. *)
Definition ts_parse_table_2153 : parse_row :=
  [STATE 2656 [sym__procAttribute]; STATE 14883 [sym_procAttribute];
   STATE 2338 [sym_procExternal; aux_sym_declVar_repeat2]; ACTIONS 13774 [anon_sym_LBRACK];
   ACTIONS 6854 [aux_sym_ppUsesBlock_token1]; ACTIONS 3 [sym__space];
   ACTIONS 5 [sym_ppDirective]; ACTIONS 3 [sym_comment]; ACTIONS 6854 [sym_identifier];
   ACTIONS 6861 [sym_kDefault; sym_kNodefault]; ACTIONS 6864 [sym_kDispId];
   ACTIONS 6854 [sym_kGeneric; sym_kOperator]; ACTIONS 6867 [sym_kPublic];
   ACTIONS 6861 [sym_kStatic; sym_kVirtual; sym_kAbstract; sym_kDynamic; sym_kOverride;
   sym_kOverload; sym_kReintroduce; sym_kStdcall; sym_kCdecl; sym_kCppdecl; sym_kPascal;
   sym_kRegister; sym_kMwpascal]; ACTIONS 13763 [sym_kExternal]; ACTIONS 6870 [sym_kMessage];
   ACTIONS 6873 [sym_kDeprecated]; ACTIONS 6861 [sym_kExperimental; sym_kPlatform;
   sym_kUnimplemented; sym_kCvar]; ACTIONS 6876 [sym_kExport]; ACTIONS 6861 [sym_kFar; sym_kNear;
   sym_kSafecall; sym_kAssembler; sym_kNostackframe; sym_kInterrupt; sym_kNoreturn; sym_kIocheck;
   sym_kLocal; sym_kHardfloat; sym_kSoftfloat; sym_kMs_abi_default; sym_kMs_abi_cdecl;
   sym_kSaveregisters; sym_kSysv_abi_default; sym_kSysv_abi_cdecl; sym_kVectorcall; sym_kVarargs;
   sym_kWinapi]; ACTIONS 6879 [sym_kAlias]; ACTIONS 6854 [sym_kBegin; sym_kClass; sym_kConst;
   sym_kConstructor; sym_kDestructor; sym_kEnd; sym_kExports; sym_kFunction];
   ACTIONS 1016 [sym_kInline]; ACTIONS 6854 [sym_kLabel; sym_kProcedure; sym_kResourcestring;
   sym_kThreadvar; sym_kType; sym_kUses; sym_kVar]].

Definition ts_parse_table_part10 : list parse_row :=
  [
   ts_parse_table_1859; ts_parse_table_1860; ts_parse_table_1861; ts_parse_table_1862;
   ts_parse_table_1863; ts_parse_table_1864; ts_parse_table_1865; ts_parse_table_1866;
   ts_parse_table_1867; ts_parse_table_1868; ts_parse_table_1869; ts_parse_table_1870;
   ts_parse_table_1871; ts_parse_table_1872; ts_parse_table_1873; ts_parse_table_1874;
   ts_parse_table_1875; ts_parse_table_1876; ts_parse_table_1877; ts_parse_table_1878;
   ts_parse_table_1879; ts_parse_table_1880; ts_parse_table_1881; ts_parse_table_1882;
   ts_parse_table_1883; ts_parse_table_1884; ts_parse_table_1885; ts_parse_table_1886;
   ts_parse_table_1887; ts_parse_table_1888; ts_parse_table_1889; ts_parse_table_1890;
   ts_parse_table_1891; ts_parse_table_1892; ts_parse_table_1893; ts_parse_table_1894;
   ts_parse_table_1895; ts_parse_table_1896; ts_parse_table_1897; ts_parse_table_1898;
   ts_parse_table_1899; ts_parse_table_1900; ts_parse_table_1901; ts_parse_table_1902;
   ts_parse_table_1903; ts_parse_table_1904; ts_parse_table_1905; ts_parse_table_1906;
   ts_parse_table_1907; ts_parse_table_1908; ts_parse_table_1909; ts_parse_table_1910;
   ts_parse_table_1911; ts_parse_table_1912; ts_parse_table_1913; ts_parse_table_1914;
   ts_parse_table_1915; ts_parse_table_1916; ts_parse_table_1917; ts_parse_table_1918;
   ts_parse_table_1919; ts_parse_table_1920; ts_parse_table_1921; ts_parse_table_1922;
   ts_parse_table_1923; ts_parse_table_1924; ts_parse_table_1925; ts_parse_table_1926;
   ts_parse_table_1927; ts_parse_table_1928; ts_parse_table_1929; ts_parse_table_1930;
   ts_parse_table_1931; ts_parse_table_1932; ts_parse_table_1933; ts_parse_table_1934;
   ts_parse_table_1935; ts_parse_table_1936; ts_parse_table_1937; ts_parse_table_1938;
   ts_parse_table_1939; ts_parse_table_1940; ts_parse_table_1941; ts_parse_table_1942;
   ts_parse_table_1943; ts_parse_table_1944; ts_parse_table_1945; ts_parse_table_1946;
   ts_parse_table_1947; ts_parse_table_1948; ts_parse_table_1949; ts_parse_table_1950;
   ts_parse_table_1951; ts_parse_table_1952; ts_parse_table_1953; ts_parse_table_1954;
   ts_parse_table_1955; ts_parse_table_1956; ts_parse_table_1957; ts_parse_table_1958;
   ts_parse_table_1959; ts_parse_table_1960; ts_parse_table_1961; ts_parse_table_1962;
   ts_parse_table_1963; ts_parse_table_1964; ts_parse_table_1965; ts_parse_table_1966;
   ts_parse_table_1967; ts_parse_table_1968; ts_parse_table_1969; ts_parse_table_1970;
   ts_parse_table_1971; ts_parse_table_1972; ts_parse_table_1973; ts_parse_table_1974;
   ts_parse_table_1975; ts_parse_table_1976; ts_parse_table_1977; ts_parse_table_1978;
   ts_parse_table_1979; ts_parse_table_1980; ts_parse_table_1981; ts_parse_table_1982;
   ts_parse_table_1983; ts_parse_table_1984; ts_parse_table_1985; ts_parse_table_1986;
   ts_parse_table_1987; ts_parse_table_1988; ts_parse_table_1989; ts_parse_table_1990;
   ts_parse_table_1991; ts_parse_table_1992; ts_parse_table_1993; ts_parse_table_1994;
   ts_parse_table_1995; ts_parse_table_1996; ts_parse_table_1997; ts_parse_table_1998;
   ts_parse_table_1999; ts_parse_table_2000; ts_parse_table_2001; ts_parse_table_2002;
   ts_parse_table_2003; ts_parse_table_2004; ts_parse_table_2005; ts_parse_table_2006;
   ts_parse_table_2007; ts_parse_table_2008; ts_parse_table_2009; ts_parse_table_2010;
   ts_parse_table_2011; ts_parse_table_2012; ts_parse_table_2013; ts_parse_table_2014;
   ts_parse_table_2015; ts_parse_table_2016; ts_parse_table_2017; ts_parse_table_2018;
   ts_parse_table_2019; ts_parse_table_2020; ts_parse_table_2021; ts_parse_table_2022;
   ts_parse_table_2023; ts_parse_table_2024; ts_parse_table_2025; ts_parse_table_2026;
   ts_parse_table_2027; ts_parse_table_2028; ts_parse_table_2029; ts_parse_table_2030;
   ts_parse_table_2031; ts_parse_table_2032; ts_parse_table_2033; ts_parse_table_2034;
   ts_parse_table_2035; ts_parse_table_2036; ts_parse_table_2037; ts_parse_table_2038;
   ts_parse_table_2039; ts_parse_table_2040; ts_parse_table_2041; ts_parse_table_2042;
   ts_parse_table_2043; ts_parse_table_2044; ts_parse_table_2045; ts_parse_table_2046;
   ts_parse_table_2047; ts_parse_table_2048; ts_parse_table_2049; ts_parse_table_2050;
   ts_parse_table_2051; ts_parse_table_2052; ts_parse_table_2053; ts_parse_table_2054;
   ts_parse_table_2055; ts_parse_table_2056; ts_parse_table_2057; ts_parse_table_2058;
   ts_parse_table_2059; ts_parse_table_2060; ts_parse_table_2061; ts_parse_table_2062;
   ts_parse_table_2063; ts_parse_table_2064; ts_parse_table_2065; ts_parse_table_2066;
   ts_parse_table_2067; ts_parse_table_2068; ts_parse_table_2069; ts_parse_table_2070;
   ts_parse_table_2071; ts_parse_table_2072; ts_parse_table_2073; ts_parse_table_2074;
   ts_parse_table_2075; ts_parse_table_2076; ts_parse_table_2077; ts_parse_table_2078;
   ts_parse_table_2079; ts_parse_table_2080; ts_parse_table_2081; ts_parse_table_2082;
   ts_parse_table_2083; ts_parse_table_2084; ts_parse_table_2085; ts_parse_table_2086;
   ts_parse_table_2087; ts_parse_table_2088; ts_parse_table_2089; ts_parse_table_2090;
   ts_parse_table_2091; ts_parse_table_2092; ts_parse_table_2093; ts_parse_table_2094;
   ts_parse_table_2095; ts_parse_table_2096; ts_parse_table_2097; ts_parse_table_2098;
   ts_parse_table_2099; ts_parse_table_2100; ts_parse_table_2101; ts_parse_table_2102;
   ts_parse_table_2103; ts_parse_table_2104; ts_parse_table_2105; ts_parse_table_2106;
   ts_parse_table_2107; ts_parse_table_2108; ts_parse_table_2109; ts_parse_table_2110;
   ts_parse_table_2111; ts_parse_table_2112; ts_parse_table_2113; ts_parse_table_2114;
   ts_parse_table_2115; ts_parse_table_2116; ts_parse_table_2117; ts_parse_table_2118;
   ts_parse_table_2119; ts_parse_table_2120; ts_parse_table_2121; ts_parse_table_2122;
   ts_parse_table_2123; ts_parse_table_2124; ts_parse_table_2125; ts_parse_table_2126;
   ts_parse_table_2127; ts_parse_table_2128; ts_parse_table_2129; ts_parse_table_2130;
   ts_parse_table_2131; ts_parse_table_2132; ts_parse_table_2133; ts_parse_table_2134;
   ts_parse_table_2135; ts_parse_table_2136; ts_parse_table_2137; ts_parse_table_2138;
   ts_parse_table_2139; ts_parse_table_2140; ts_parse_table_2141; ts_parse_table_2142;
   ts_parse_table_2143; ts_parse_table_2144; ts_parse_table_2145; ts_parse_table_2146;
   ts_parse_table_2147; ts_parse_table_2148; ts_parse_table_2149; ts_parse_table_2150;
   ts_parse_table_2151; ts_parse_table_2152; ts_parse_table_2153
  ].
