(* ===== verification/ParseTable11.v ===== *)
(** * The parse table of [parser.c], states 2154 to 2466

    One definition for each row of [ts_parse_table], with the initializers of
    the row in the order of the source; consecutive initializers of the same
    value are one group. *)

From S2P Require Import Prelude.
From S2P Require Import Symbols.
From S2P Require Import ParseTypes.

(** State 2154. *)
Definition ts_parse_table_2154 : parse_row :=
  [STATE 2656 [sym__procAttribute]; STATE 14883 [sym_procAttribute];
   STATE 2178 [sym_procExternal; aux_sym_declVar_repeat2]; ACTIONS 13777 [anon_sym_LBRACK];
   ACTIONS 6913 [aux_sym_ppUsesBlock_token1]; ACTIONS 3 [sym__space];
   ACTIONS 5 [sym_ppDirective]; ACTIONS 3 [sym_comment]; ACTIONS 6913 [sym_identifier];
   ACTIONS 6920 [sym_kDefault; sym_kNodefault]; ACTIONS 6923 [sym_kDispId];
   ACTIONS 6913 [sym_kGeneric; sym_kOperator]; ACTIONS 6926 [sym_kPublic];
   ACTIONS 6920 [sym_kStatic; sym_kVirtual; sym_kAbstract; sym_kDynamic; sym_kOverride;
   sym_kOverload; sym_kReintroduce; sym_kStdcall; sym_kCdecl; sym_kCppdecl; sym_kPascal;
   sym_kRegister; sym_kMwpascal]; ACTIONS 13763 [sym_kExternal]; ACTIONS 6929 [sym_kMessage];
   ACTIONS 6932 [sym_kDeprecated]; ACTIONS 6920 [sym_kExperimental; sym_kPlatform;
   sym_kUnimplemented; sym_kCvar]; ACTIONS 6935 [sym_kExport]; ACTIONS 6920 [sym_kFar; sym_kNear;
   sym_kSafecall; sym_kAssembler; sym_kNostackframe; sym_kInterrupt; sym_kNoreturn; sym_kIocheck;
   sym_kLocal; sym_kHardfloat; sym_kSoftfloat; sym_kMs_abi_default; sym_kMs_abi_cdecl;
   sym_kSaveregisters; sym_kSysv_abi_default; sym_kSysv_abi_cdecl; sym_kVectorcall; sym_kVarargs;
   sym_kWinapi]; ACTIONS 6938 [sym_kAlias]; ACTIONS 6913 [sym_kBegin; sym_kClass; sym_kConst;
   sym_kConstructor; sym_kDestructor; sym_kEnd; sym_kExports; sym_kFunction];
   ACTIONS 1016 [sym_kInline]; ACTIONS 6913 [sym_kLabel; sym_kProcedure; sym_kResourcestring;
   sym_kThreadvar; sym_kType; sym_kUses; sym_kVar]].

(** State 2155. *)
Definition ts_parse_table_2155 : parse_row :=
  [STATE 2656 [sym__procAttribute]; STATE 14883 [sym_procAttribute];
   STATE 2179 [sym_procExternal; aux_sym_declVar_repeat2]; ACTIONS 13780 [anon_sym_LBRACK];
   ACTIONS 6944 [aux_sym_ppUsesBlock_token1]; ACTIONS 3 [sym__space];
   ACTIONS 5 [sym_ppDirective]; ACTIONS 3 [sym_comment]; ACTIONS 6944 [sym_identifier];
   ACTIONS 6951 [sym_kDefault; sym_kNodefault]; ACTIONS 6954 [sym_kDispId];
   ACTIONS 6944 [sym_kGeneric; sym_kOperator]; ACTIONS 6957 [sym_kPublic];
   ACTIONS 6951 [sym_kStatic; sym_kVirtual; sym_kAbstract; sym_kDynamic; sym_kOverride;
   sym_kOverload; sym_kReintroduce; sym_kStdcall; sym_kCdecl; sym_kCppdecl; sym_kPascal;
   sym_kRegister; sym_kMwpascal]; ACTIONS 13763 [sym_kExternal]; ACTIONS 6960 [sym_kMessage];
   ACTIONS 6963 [sym_kDeprecated]; ACTIONS 6951 [sym_kExperimental; sym_kPlatform;
   sym_kUnimplemented; sym_kCvar]; ACTIONS 6966 [sym_kExport]; ACTIONS 6951 [sym_kFar; sym_kNear;
   sym_kSafecall; sym_kAssembler; sym_kNostackframe; sym_kInterrupt; sym_kNoreturn; sym_kIocheck;
   sym_kLocal; sym_kHardfloat; sym_kSoftfloat; sym_kMs_abi_default; sym_kMs_abi_cdecl;
   sym_kSaveregisters; sym_kSysv_abi_default; sym_kSysv_abi_cdecl; sym_kVectorcall; sym_kVarargs;
   sym_kWinapi]; ACTIONS 6969 [sym_kAlias]; ACTIONS 6944 [sym_kBegin; sym_kClass; sym_kConst;
   sym_kConstructor; sym_kDestructor; sym_kEnd; sym_kExports; sym_kFunction];
   ACTIONS 1016 [sym_kInline]; ACTIONS 6944 [sym_kLabel; sym_kProcedure; sym_kResourcestring;
   sym_kThreadvar; sym_kType; sym_kUses; sym_kVar]].

(** State 2156. *)
Definition ts_parse_table_2156 : parse_row :=
  [STATE 2656 [sym__procAttribute]; STATE 14883 [sym_procAttribute];
   STATE 2181 [sym_procExternal; aux_sym_declVar_repeat2]; ACTIONS 13783 [anon_sym_LBRACK];
   ACTIONS 6972 [aux_sym_ppUsesBlock_token1]; ACTIONS 3 [sym__space];
   ACTIONS 5 [sym_ppDirective]; ACTIONS 3 [sym_comment]; ACTIONS 6972 [sym_identifier];
   ACTIONS 6979 [sym_kDefault; sym_kNodefault]; ACTIONS 6982 [sym_kDispId];
   ACTIONS 6972 [sym_kGeneric; sym_kOperator]; ACTIONS 6985 [sym_kPublic];
   ACTIONS 6979 [sym_kStatic; sym_kVirtual; sym_kAbstract; sym_kDynamic; sym_kOverride;
   sym_kOverload; sym_kReintroduce; sym_kStdcall; sym_kCdecl; sym_kCppdecl; sym_kPascal;
   sym_kRegister; sym_kMwpascal]; ACTIONS 13763 [sym_kExternal]; ACTIONS 6988 [sym_kMessage];
   ACTIONS 6991 [sym_kDeprecated]; ACTIONS 6979 [sym_kExperimental; sym_kPlatform;
   sym_kUnimplemented; sym_kCvar]; ACTIONS 6994 [sym_kExport]; ACTIONS 6979 [sym_kFar; sym_kNear;
   sym_kSafecall; sym_kAssembler; sym_kNostackframe; sym_kInterrupt; sym_kNoreturn; sym_kIocheck;
   sym_kLocal; sym_kHardfloat; sym_kSoftfloat; sym_kMs_abi_default; sym_kMs_abi_cdecl;
   sym_kSaveregisters; sym_kSysv_abi_default; sym_kSysv_abi_cdecl; sym_kVectorcall; sym_kVarargs;
   sym_kWinapi]; ACTIONS 6997 [sym_kAlias]; ACTIONS 6972 [sym_kBegin; sym_kClass; sym_kConst;
   sym_kConstructor; sym_kDestructor; sym_kEnd; sym_kExports; sym_kFunction];
   ACTIONS 1016 [sym_kInline]; ACTIONS 6972 [sym_kLabel; sym_kProcedure; sym_kResourcestring;
   sym_kThreadvar; sym_kType; sym_kUses; sym_kVar]].

(** State 2157. *)
Definition ts_parse_table_2157 : parse_row :=
  [STATE 2656 [sym__procAttribute]; STATE 14883 [sym_procAttribute];
   STATE 2338 [sym_procExternal; aux_sym_declVar_repeat2]; ACTIONS 13786 [anon_sym_LBRACK];
   ACTIONS 7031 [aux_sym_ppUsesBlock_token1]; ACTIONS 3 [sym__space];
   ACTIONS 5 [sym_ppDirective]; ACTIONS 3 [sym_comment]; ACTIONS 7031 [sym_identifier];
   ACTIONS 7038 [sym_kDefault; sym_kNodefault]; ACTIONS 7041 [sym_kDispId];
   ACTIONS 7031 [sym_kGeneric; sym_kOperator]; ACTIONS 7044 [sym_kPublic];
   ACTIONS 7038 [sym_kStatic; sym_kVirtual; sym_kAbstract; sym_kDynamic; sym_kOverride;
   sym_kOverload; sym_kReintroduce; sym_kStdcall; sym_kCdecl; sym_kCppdecl; sym_kPascal;
   sym_kRegister; sym_kMwpascal]; ACTIONS 13763 [sym_kExternal]; ACTIONS 7047 [sym_kMessage];
   ACTIONS 7050 [sym_kDeprecated]; ACTIONS 7038 [sym_kExperimental; sym_kPlatform;
   sym_kUnimplemented; sym_kCvar]; ACTIONS 7053 [sym_kExport]; ACTIONS 7038 [sym_kFar; sym_kNear;
   sym_kSafecall; sym_kAssembler; sym_kNostackframe; sym_kInterrupt; sym_kNoreturn; sym_kIocheck;
   sym_kLocal; sym_kHardfloat; sym_kSoftfloat; sym_kMs_abi_default; sym_kMs_abi_cdecl;
   sym_kSaveregisters; sym_kSysv_abi_default; sym_kSysv_abi_cdecl; sym_kVectorcall; sym_kVarargs;
   sym_kWinapi]; ACTIONS 7056 [sym_kAlias]; ACTIONS 7031 [sym_kBegin; sym_kClass; sym_kConst;
   sym_kConstructor; sym_kDestructor; sym_kEnd; sym_kExports; sym_kFunction];
   ACTIONS 1016 [sym_kInline]; ACTIONS 7031 [sym_kLabel; sym_kProcedure; sym_kResourcestring;
   sym_kThreadvar; sym_kType; sym_kUses; sym_kVar]].

(** State 2158. *)
Definition ts_parse_table_2158 : parse_row :=
  [STATE 2656 [sym__procAttribute]; STATE 14883 [sym_procAttribute];
   STATE 2184 [sym_procExternal; aux_sym_declVar_repeat2]; ACTIONS 13789 [anon_sym_LBRACK];
   ACTIONS 7090 [aux_sym_ppUsesBlock_token1]; ACTIONS 3 [sym__space];
   ACTIONS 5 [sym_ppDirective]; ACTIONS 3 [sym_comment]; ACTIONS 7090 [sym_identifier];
   ACTIONS 7097 [sym_kDefault; sym_kNodefault]; ACTIONS 7100 [sym_kDispId];
   ACTIONS 7090 [sym_kGeneric; sym_kOperator]; ACTIONS 7103 [sym_kPublic];
   ACTIONS 7097 [sym_kStatic; sym_kVirtual; sym_kAbstract; sym_kDynamic; sym_kOverride;
   sym_kOverload; sym_kReintroduce; sym_kStdcall; sym_kCdecl; sym_kCppdecl; sym_kPascal;
   sym_kRegister; sym_kMwpascal]; ACTIONS 13763 [sym_kExternal]; ACTIONS 7106 [sym_kMessage];
   ACTIONS 7109 [sym_kDeprecated]; ACTIONS 7097 [sym_kExperimental; sym_kPlatform;
   sym_kUnimplemented; sym_kCvar]; ACTIONS 7112 [sym_kExport]; ACTIONS 7097 [sym_kFar; sym_kNear;
   sym_kSafecall; sym_kAssembler; sym_kNostackframe; sym_kInterrupt; sym_kNoreturn; sym_kIocheck;
   sym_kLocal; sym_kHardfloat; sym_kSoftfloat; sym_kMs_abi_default; sym_kMs_abi_cdecl;
   sym_kSaveregisters; sym_kSysv_abi_default; sym_kSysv_abi_cdecl; sym_kVectorcall; sym_kVarargs;
   sym_kWinapi]; ACTIONS 7115 [sym_kAlias]; ACTIONS 7090 [sym_kBegin; sym_kClass; sym_kConst;
   sym_kConstructor; sym_kDestructor; sym_kEnd; sym_kExports; sym_kFunction];
   ACTIONS 1016 [sym_kInline]; ACTIONS 7090 [sym_kLabel; sym_kProcedure; sym_kResourcestring;
   sym_kThreadvar; sym_kType; sym_kUses; sym_kVar]].

(** State 2159. *)
Definition ts_parse_table_2159 : parse_row :=
  [STATE 2656 [sym__procAttribute]; STATE 14883 [sym_procAttribute];
   STATE 2338 [sym_procExternal; aux_sym_declVar_repeat2]; ACTIONS 13792 [anon_sym_LBRACK];
   ACTIONS 7118 [aux_sym_ppUsesBlock_token1]; ACTIONS 3 [sym__space];
   ACTIONS 5 [sym_ppDirective]; ACTIONS 3 [sym_comment]; ACTIONS 7118 [sym_identifier];
   ACTIONS 7125 [sym_kDefault; sym_kNodefault]; ACTIONS 7128 [sym_kDispId];
   ACTIONS 7118 [sym_kGeneric; sym_kOperator]; ACTIONS 7131 [sym_kPublic];
   ACTIONS 7125 [sym_kStatic; sym_kVirtual; sym_kAbstract; sym_kDynamic; sym_kOverride;
   sym_kOverload; sym_kReintroduce; sym_kStdcall; sym_kCdecl; sym_kCppdecl; sym_kPascal;
   sym_kRegister; sym_kMwpascal]; ACTIONS 13763 [sym_kExternal]; ACTIONS 7134 [sym_kMessage];
   ACTIONS 7137 [sym_kDeprecated]; ACTIONS 7125 [sym_kExperimental; sym_kPlatform;
   sym_kUnimplemented; sym_kCvar]; ACTIONS 7140 [sym_kExport]; ACTIONS 7125 [sym_kFar; sym_kNear;
   sym_kSafecall; sym_kAssembler; sym_kNostackframe; sym_kInterrupt; sym_kNoreturn; sym_kIocheck;
   sym_kLocal; sym_kHardfloat; sym_kSoftfloat; sym_kMs_abi_default; sym_kMs_abi_cdecl;
   sym_kSaveregisters; sym_kSysv_abi_default; sym_kSysv_abi_cdecl; sym_kVectorcall; sym_kVarargs;
   sym_kWinapi]; ACTIONS 7143 [sym_kAlias]; ACTIONS 7118 [sym_kBegin; sym_kClass; sym_kConst;
   sym_kConstructor; sym_kDestructor; sym_kEnd; sym_kExports; sym_kFunction];
   ACTIONS 1016 [sym_kInline]; ACTIONS 7118 [sym_kLabel; sym_kProcedure; sym_kResourcestring;
   sym_kThreadvar; sym_kType; sym_kUses; sym_kVar]].

(** State 2160. *)
Definition ts_parse_table_2160 : parse_row :=
  [STATE 2656 [sym__procAttribute]; STATE 14883 [sym_procAttribute];
   STATE 2186 [sym_procExternal; aux_sym_declVar_repeat2]; ACTIONS 13795 [anon_sym_LBRACK];
   ACTIONS 7177 [aux_sym_ppUsesBlock_token1]; ACTIONS 3 [sym__space];
   ACTIONS 5 [sym_ppDirective]; ACTIONS 3 [sym_comment]; ACTIONS 7177 [sym_identifier];
   ACTIONS 7184 [sym_kDefault; sym_kNodefault]; ACTIONS 7187 [sym_kDispId];
   ACTIONS 7177 [sym_kGeneric; sym_kOperator]; ACTIONS 7190 [sym_kPublic];
   ACTIONS 7184 [sym_kStatic; sym_kVirtual; sym_kAbstract; sym_kDynamic; sym_kOverride;
   sym_kOverload; sym_kReintroduce; sym_kStdcall; sym_kCdecl; sym_kCppdecl; sym_kPascal;
   sym_kRegister; sym_kMwpascal]; ACTIONS 13763 [sym_kExternal]; ACTIONS 7193 [sym_kMessage];
   ACTIONS 7196 [sym_kDeprecated]; ACTIONS 7184 [sym_kExperimental; sym_kPlatform;
   sym_kUnimplemented; sym_kCvar]; ACTIONS 7199 [sym_kExport]; ACTIONS 7184 [sym_kFar; sym_kNear;
   sym_kSafecall; sym_kAssembler; sym_kNostackframe; sym_kInterrupt; sym_kNoreturn; sym_kIocheck;
   sym_kLocal; sym_kHardfloat; sym_kSoftfloat; sym_kMs_abi_default; sym_kMs_abi_cdecl;
   sym_kSaveregisters; sym_kSysv_abi_default; sym_kSysv_abi_cdecl; sym_kVectorcall; sym_kVarargs;
   sym_kWinapi]; ACTIONS 7202 [sym_kAlias]; ACTIONS 7177 [sym_kBegin; sym_kClass; sym_kConst;
   sym_kConstructor; sym_kDestructor; sym_kEnd; sym_kExports; sym_kFunction];
   ACTIONS 1016 [sym_kInline]; ACTIONS 7177 [sym_kLabel; sym_kProcedure; sym_kResourcestring;
   sym_kThreadvar; sym_kType; sym_kUses; sym_kVar]].

(** State 2161. *)
Definition ts_parse_table_2161 : parse_row :=
  [STATE 2630 [sym__procAttribute]; STATE 14946 [sym_procAttribute];
   STATE 2340 [sym_procExternal; aux_sym_declVar_repeat2]; ACTIONS 13798 [anon_sym_LBRACK];
   ACTIONS 5373 [aux_sym_ppUsesBlock_token1]; ACTIONS 3 [sym__space];
   ACTIONS 5 [sym_ppDirective]; ACTIONS 3 [sym_comment]; ACTIONS 5373 [sym_identifier];
   ACTIONS 5380 [sym_kDefault; sym_kNodefault]; ACTIONS 5383 [sym_kDispId];
   ACTIONS 5373 [sym_kGeneric; sym_kOperator]; ACTIONS 5386 [sym_kPublic];
   ACTIONS 5380 [sym_kStatic; sym_kVirtual; sym_kAbstract; sym_kDynamic; sym_kOverride;
   sym_kOverload; sym_kReintroduce; sym_kStdcall; sym_kCdecl; sym_kCppdecl; sym_kPascal;
   sym_kRegister; sym_kMwpascal]; ACTIONS 13801 [sym_kExternal]; ACTIONS 5389 [sym_kMessage];
   ACTIONS 5392 [sym_kDeprecated]; ACTIONS 5380 [sym_kExperimental; sym_kPlatform;
   sym_kUnimplemented; sym_kCvar]; ACTIONS 5395 [sym_kExport]; ACTIONS 5380 [sym_kFar; sym_kNear;
   sym_kSafecall; sym_kAssembler; sym_kNostackframe; sym_kInterrupt; sym_kNoreturn; sym_kIocheck;
   sym_kLocal; sym_kHardfloat; sym_kSoftfloat; sym_kMs_abi_default; sym_kMs_abi_cdecl;
   sym_kSaveregisters; sym_kSysv_abi_default; sym_kSysv_abi_cdecl; sym_kVectorcall; sym_kVarargs;
   sym_kWinapi]; ACTIONS 5398 [sym_kAlias]; ACTIONS 5373 [sym_kAsm; sym_kBegin; sym_kClass;
   sym_kConst; sym_kConstructor; sym_kDestructor; sym_kExports; sym_kFunction];
   ACTIONS 1016 [sym_kInline]; ACTIONS 5373 [sym_kLabel; sym_kProcedure; sym_kResourcestring;
   sym_kThreadvar; sym_kType; sym_kUses; sym_kVar]].

(** State 2162. *)
Definition ts_parse_table_2162 : parse_row :=
  [STATE 2630 [sym__procAttribute]; STATE 14946 [sym_procAttribute];
   STATE 2209 [sym_procExternal; aux_sym_declVar_repeat2]; ACTIONS 13803 [anon_sym_LBRACK];
   ACTIONS 5598 [aux_sym_ppUsesBlock_token1]; ACTIONS 3 [sym__space];
   ACTIONS 5 [sym_ppDirective]; ACTIONS 3 [sym_comment]; ACTIONS 5598 [sym_identifier];
   ACTIONS 5605 [sym_kDefault; sym_kNodefault]; ACTIONS 5608 [sym_kDispId];
   ACTIONS 5598 [sym_kGeneric; sym_kOperator]; ACTIONS 5611 [sym_kPublic];
   ACTIONS 5605 [sym_kStatic; sym_kVirtual; sym_kAbstract; sym_kDynamic; sym_kOverride;
   sym_kOverload; sym_kReintroduce; sym_kStdcall; sym_kCdecl; sym_kCppdecl; sym_kPascal;
   sym_kRegister; sym_kMwpascal]; ACTIONS 13801 [sym_kExternal]; ACTIONS 5614 [sym_kMessage];
   ACTIONS 5617 [sym_kDeprecated]; ACTIONS 5605 [sym_kExperimental; sym_kPlatform;
   sym_kUnimplemented; sym_kCvar]; ACTIONS 5620 [sym_kExport]; ACTIONS 5605 [sym_kFar; sym_kNear;
   sym_kSafecall; sym_kAssembler; sym_kNostackframe; sym_kInterrupt; sym_kNoreturn; sym_kIocheck;
   sym_kLocal; sym_kHardfloat; sym_kSoftfloat; sym_kMs_abi_default; sym_kMs_abi_cdecl;
   sym_kSaveregisters; sym_kSysv_abi_default; sym_kSysv_abi_cdecl; sym_kVectorcall; sym_kVarargs;
   sym_kWinapi]; ACTIONS 5623 [sym_kAlias]; ACTIONS 5598 [sym_kAsm; sym_kBegin; sym_kClass;
   sym_kConst; sym_kConstructor; sym_kDestructor; sym_kExports; sym_kFunction];
   ACTIONS 1016 [sym_kInline]; ACTIONS 5598 [sym_kLabel; sym_kProcedure; sym_kResourcestring;
   sym_kThreadvar; sym_kType; sym_kUses; sym_kVar]].

(** State 2163. *)
Definition ts_parse_table_2163 : parse_row :=
  [STATE 2630 [sym__procAttribute]; STATE 14946 [sym_procAttribute];
   STATE 2340 [sym_procExternal; aux_sym_declVar_repeat2]; ACTIONS 13806 [anon_sym_LBRACK];
   ACTIONS 5797 [aux_sym_ppUsesBlock_token1]; ACTIONS 3 [sym__space];
   ACTIONS 5 [sym_ppDirective]; ACTIONS 3 [sym_comment]; ACTIONS 5797 [sym_identifier];
   ACTIONS 5804 [sym_kDefault; sym_kNodefault]; ACTIONS 5807 [sym_kDispId];
   ACTIONS 5797 [sym_kGeneric; sym_kOperator]; ACTIONS 5810 [sym_kPublic];
   ACTIONS 5804 [sym_kStatic; sym_kVirtual; sym_kAbstract; sym_kDynamic; sym_kOverride;
   sym_kOverload; sym_kReintroduce; sym_kStdcall; sym_kCdecl; sym_kCppdecl; sym_kPascal;
   sym_kRegister; sym_kMwpascal]; ACTIONS 13801 [sym_kExternal]; ACTIONS 5813 [sym_kMessage];
   ACTIONS 5816 [sym_kDeprecated]; ACTIONS 5804 [sym_kExperimental; sym_kPlatform;
   sym_kUnimplemented; sym_kCvar]; ACTIONS 5819 [sym_kExport]; ACTIONS 5804 [sym_kFar; sym_kNear;
   sym_kSafecall; sym_kAssembler; sym_kNostackframe; sym_kInterrupt; sym_kNoreturn; sym_kIocheck;
   sym_kLocal; sym_kHardfloat; sym_kSoftfloat; sym_kMs_abi_default; sym_kMs_abi_cdecl;
   sym_kSaveregisters; sym_kSysv_abi_default; sym_kSysv_abi_cdecl; sym_kVectorcall; sym_kVarargs;
   sym_kWinapi]; ACTIONS 5822 [sym_kAlias]; ACTIONS 5797 [sym_kAsm; sym_kBegin; sym_kClass;
   sym_kConst; sym_kConstructor; sym_kDestructor; sym_kExports; sym_kFunction];
   ACTIONS 1016 [sym_kInline]; ACTIONS 5797 [sym_kLabel; sym_kProcedure; sym_kResourcestring;
   sym_kThreadvar; sym_kType; sym_kUses; sym_kVar]].

(** State 2164. *)
Definition ts_parse_table_2164 : parse_row :=
  [ACTIONS 10576 [anon_sym_LBRACK; aux_sym_ppUsesBlock_token1]; ACTIONS 3 [sym__space];
   ACTIONS 5 [sym_ppDirective]; ACTIONS 3 [sym_comment]; ACTIONS 10576 [sym_identifier;
   sym_kDefault; sym_kNodefault; sym_kDispId; sym_kGeneric; sym_kOperator; sym_kPublic;
   sym_kStatic; sym_kVirtual; sym_kAbstract; sym_kDynamic; sym_kOverride; sym_kOverload;
   sym_kReintroduce; sym_kStdcall; sym_kCdecl; sym_kCppdecl; sym_kPascal; sym_kRegister;
   sym_kMwpascal; sym_kExternal; sym_kMessage; sym_kDeprecated; sym_kExperimental; sym_kPlatform;
   sym_kUnimplemented; sym_kCvar; sym_kExport; sym_kFar; sym_kNear; sym_kSafecall;
   sym_kAssembler; sym_kNostackframe; sym_kInterrupt; sym_kNoreturn; sym_kIocheck; sym_kLocal;
   sym_kHardfloat; sym_kSoftfloat; sym_kMs_abi_default; sym_kMs_abi_cdecl; sym_kSaveregisters;
   sym_kSysv_abi_default; sym_kSysv_abi_cdecl; sym_kVectorcall; sym_kVarargs; sym_kWinapi;
   sym_kAlias; sym_kBegin; sym_kClass; sym_kConst; sym_kConstructor; sym_kDestructor; sym_kEnd;
   sym_kExports; sym_kFinalization; sym_kFunction; sym_kImplementation; sym_kInitialization;
   sym_kInline; sym_kInterface; sym_kLabel; sym_kProcedure; sym_kResourcestring; sym_kThreadvar;
   sym_kType; sym_kUses; sym_kVar]].

(** State 2165. *)
Definition ts_parse_table_2165 : parse_row :=
  [STATE 2630 [sym__procAttribute]; STATE 14946 [sym_procAttribute];
   STATE 2218 [sym_procExternal; aux_sym_declVar_repeat2]; ACTIONS 13809 [anon_sym_LBRACK];
   ACTIONS 4029 [aux_sym_ppUsesBlock_token1]; ACTIONS 3 [sym__space];
   ACTIONS 5 [sym_ppDirective]; ACTIONS 3 [sym_comment]; ACTIONS 4029 [sym_identifier];
   ACTIONS 4036 [sym_kDefault; sym_kNodefault]; ACTIONS 4039 [sym_kDispId];
   ACTIONS 4029 [sym_kGeneric; sym_kOperator]; ACTIONS 4042 [sym_kPublic];
   ACTIONS 4036 [sym_kStatic; sym_kVirtual; sym_kAbstract; sym_kDynamic; sym_kOverride;
   sym_kOverload; sym_kReintroduce; sym_kStdcall; sym_kCdecl; sym_kCppdecl; sym_kPascal;
   sym_kRegister; sym_kMwpascal]; ACTIONS 13801 [sym_kExternal]; ACTIONS 4045 [sym_kMessage];
   ACTIONS 4048 [sym_kDeprecated]; ACTIONS 4036 [sym_kExperimental; sym_kPlatform;
   sym_kUnimplemented; sym_kCvar]; ACTIONS 4051 [sym_kExport]; ACTIONS 4036 [sym_kFar; sym_kNear;
   sym_kSafecall; sym_kAssembler; sym_kNostackframe; sym_kInterrupt; sym_kNoreturn; sym_kIocheck;
   sym_kLocal; sym_kHardfloat; sym_kSoftfloat; sym_kMs_abi_default; sym_kMs_abi_cdecl;
   sym_kSaveregisters; sym_kSysv_abi_default; sym_kSysv_abi_cdecl; sym_kVectorcall; sym_kVarargs;
   sym_kWinapi]; ACTIONS 4054 [sym_kAlias]; ACTIONS 4029 [sym_kAsm; sym_kBegin; sym_kClass;
   sym_kConst; sym_kConstructor; sym_kDestructor; sym_kExports; sym_kFunction];
   ACTIONS 1016 [sym_kInline]; ACTIONS 4029 [sym_kLabel; sym_kProcedure; sym_kResourcestring;
   sym_kThreadvar; sym_kType; sym_kUses; sym_kVar]].

(** State 2166. *)
Definition ts_parse_table_2166 : parse_row :=
  [STATE 2630 [sym__procAttribute]; STATE 14946 [sym_procAttribute];
   STATE 2220 [sym_procExternal; aux_sym_declVar_repeat2]; ACTIONS 13812 [anon_sym_LBRACK];
   ACTIONS 4085 [aux_sym_ppUsesBlock_token1]; ACTIONS 3 [sym__space];
   ACTIONS 5 [sym_ppDirective]; ACTIONS 3 [sym_comment]; ACTIONS 4085 [sym_identifier];
   ACTIONS 4092 [sym_kDefault; sym_kNodefault]; ACTIONS 4095 [sym_kDispId];
   ACTIONS 4085 [sym_kGeneric; sym_kOperator]; ACTIONS 4098 [sym_kPublic];
   ACTIONS 4092 [sym_kStatic; sym_kVirtual; sym_kAbstract; sym_kDynamic; sym_kOverride;
   sym_kOverload; sym_kReintroduce; sym_kStdcall; sym_kCdecl; sym_kCppdecl; sym_kPascal;
   sym_kRegister; sym_kMwpascal]; ACTIONS 13801 [sym_kExternal]; ACTIONS 4101 [sym_kMessage];
   ACTIONS 4104 [sym_kDeprecated]; ACTIONS 4092 [sym_kExperimental; sym_kPlatform;
   sym_kUnimplemented; sym_kCvar]; ACTIONS 4107 [sym_kExport]; ACTIONS 4092 [sym_kFar; sym_kNear;
   sym_kSafecall; sym_kAssembler; sym_kNostackframe; sym_kInterrupt; sym_kNoreturn; sym_kIocheck;
   sym_kLocal; sym_kHardfloat; sym_kSoftfloat; sym_kMs_abi_default; sym_kMs_abi_cdecl;
   sym_kSaveregisters; sym_kSysv_abi_default; sym_kSysv_abi_cdecl; sym_kVectorcall; sym_kVarargs;
   sym_kWinapi]; ACTIONS 4110 [sym_kAlias]; ACTIONS 4085 [sym_kAsm; sym_kBegin; sym_kClass;
   sym_kConst; sym_kConstructor; sym_kDestructor; sym_kExports; sym_kFunction];
   ACTIONS 1016 [sym_kInline]; ACTIONS 4085 [sym_kLabel; sym_kProcedure; sym_kResourcestring;
   sym_kThreadvar; sym_kType; sym_kUses; sym_kVar]].

(** State 2167. *)
Definition ts_parse_table_2167 : parse_row :=
  [ACTIONS 10622 [anon_sym_LBRACK; aux_sym_ppUsesBlock_token1]; ACTIONS 3 [sym__space];
   ACTIONS 5 [sym_ppDirective]; ACTIONS 3 [sym_comment]; ACTIONS 10622 [sym_identifier;
   sym_kDefault; sym_kNodefault; sym_kDispId; sym_kGeneric; sym_kOperator; sym_kPublic;
   sym_kStatic; sym_kVirtual; sym_kAbstract; sym_kDynamic; sym_kOverride; sym_kOverload;
   sym_kReintroduce; sym_kStdcall; sym_kCdecl; sym_kCppdecl; sym_kPascal; sym_kRegister;
   sym_kMwpascal; sym_kExternal; sym_kMessage; sym_kDeprecated; sym_kExperimental; sym_kPlatform;
   sym_kUnimplemented; sym_kCvar; sym_kExport; sym_kFar; sym_kNear; sym_kSafecall;
   sym_kAssembler; sym_kNostackframe; sym_kInterrupt; sym_kNoreturn; sym_kIocheck; sym_kLocal;
   sym_kHardfloat; sym_kSoftfloat; sym_kMs_abi_default; sym_kMs_abi_cdecl; sym_kSaveregisters;
   sym_kSysv_abi_default; sym_kSysv_abi_cdecl; sym_kVectorcall; sym_kVarargs; sym_kWinapi;
   sym_kAlias; sym_kBegin; sym_kClass; sym_kConst; sym_kConstructor; sym_kDestructor; sym_kEnd;
   sym_kExports; sym_kFinalization; sym_kFunction; sym_kImplementation; sym_kInitialization;
   sym_kInline; sym_kInterface; sym_kLabel; sym_kProcedure; sym_kResourcestring; sym_kThreadvar;
   sym_kType; sym_kUses; sym_kVar]].

(** State 2168. *)
Definition ts_parse_table_2168 : parse_row :=
  [ACTIONS 10590 [anon_sym_LBRACK; aux_sym_ppUsesBlock_token1]; ACTIONS 3 [sym__space];
   ACTIONS 5 [sym_ppDirective]; ACTIONS 3 [sym_comment]; ACTIONS 10590 [sym_identifier;
   sym_kDefault; sym_kNodefault; sym_kDispId; sym_kGeneric; sym_kOperator; sym_kPublic;
   sym_kStatic; sym_kVirtual; sym_kAbstract; sym_kDynamic; sym_kOverride; sym_kOverload;
   sym_kReintroduce; sym_kStdcall; sym_kCdecl; sym_kCppdecl; sym_kPascal; sym_kRegister;
   sym_kMwpascal; sym_kExternal; sym_kMessage; sym_kDeprecated; sym_kExperimental; sym_kPlatform;
   sym_kUnimplemented; sym_kCvar; sym_kExport; sym_kFar; sym_kNear; sym_kSafecall;
   sym_kAssembler; sym_kNostackframe; sym_kInterrupt; sym_kNoreturn; sym_kIocheck; sym_kLocal;
   sym_kHardfloat; sym_kSoftfloat; sym_kMs_abi_default; sym_kMs_abi_cdecl; sym_kSaveregisters;
   sym_kSysv_abi_default; sym_kSysv_abi_cdecl; sym_kVectorcall; sym_kVarargs; sym_kWinapi;
   sym_kAlias; sym_kBegin; sym_kClass; sym_kConst; sym_kConstructor; sym_kDestructor; sym_kEnd;
   sym_kExports; sym_kFinalization; sym_kFunction; sym_kImplementation; sym_kInitialization;
   sym_kInline; sym_kInterface; sym_kLabel; sym_kProcedure; sym_kResourcestring; sym_kThreadvar;
   sym_kType; sym_kUses; sym_kVar]].

(** State 2169. *)
Definition ts_parse_table_2169 : parse_row :=
  [ACTIONS 10594 [anon_sym_LBRACK; aux_sym_ppUsesBlock_token1]; ACTIONS 3 [sym__space];
   ACTIONS 5 [sym_ppDirective]; ACTIONS 3 [sym_comment]; ACTIONS 10594 [sym_identifier;
   sym_kDefault; sym_kNodefault; sym_kDispId; sym_kGeneric; sym_kOperator; sym_kPublic;
   sym_kStatic; sym_kVirtual; sym_kAbstract; sym_kDynamic; sym_kOverride; sym_kOverload;
   sym_kReintroduce; sym_kStdcall; sym_kCdecl; sym_kCppdecl; sym_kPascal; sym_kRegister;
   sym_kMwpascal; sym_kExternal; sym_kMessage; sym_kDeprecated; sym_kExperimental; sym_kPlatform;
   sym_kUnimplemented; sym_kCvar; sym_kExport; sym_kFar; sym_kNear; sym_kSafecall;
   sym_kAssembler; sym_kNostackframe; sym_kInterrupt; sym_kNoreturn; sym_kIocheck; sym_kLocal;
   sym_kHardfloat; sym_kSoftfloat; sym_kMs_abi_default; sym_kMs_abi_cdecl; sym_kSaveregisters;
   sym_kSysv_abi_default; sym_kSysv_abi_cdecl; sym_kVectorcall; sym_kVarargs; sym_kWinapi;
   sym_kAlias; sym_kBegin; sym_kClass; sym_kConst; sym_kConstructor; sym_kDestructor; sym_kEnd;
   sym_kExports; sym_kFinalization; sym_kFunction; sym_kImplementation; sym_kInitialization;
   sym_kInline; sym_kInterface; sym_kLabel; sym_kProcedure; sym_kResourcestring; sym_kThreadvar;
   sym_kType; sym_kUses; sym_kVar]].

(** State 2170. *)
Definition ts_parse_table_2170 : parse_row :=
  [ACTIONS 10594 [anon_sym_LBRACK; aux_sym_ppUsesBlock_token1]; ACTIONS 3 [sym__space];
   ACTIONS 5 [sym_ppDirective]; ACTIONS 3 [sym_comment]; ACTIONS 10594 [sym_identifier;
   sym_kDefault; sym_kNodefault; sym_kDispId; sym_kGeneric; sym_kOperator; sym_kPublic;
   sym_kStatic; sym_kVirtual; sym_kAbstract; sym_kDynamic; sym_kOverride; sym_kOverload;
   sym_kReintroduce; sym_kStdcall; sym_kCdecl; sym_kCppdecl; sym_kPascal; sym_kRegister;
   sym_kMwpascal; sym_kExternal; sym_kMessage; sym_kDeprecated; sym_kExperimental; sym_kPlatform;
   sym_kUnimplemented; sym_kCvar; sym_kExport; sym_kFar; sym_kNear; sym_kSafecall;
   sym_kAssembler; sym_kNostackframe; sym_kInterrupt; sym_kNoreturn; sym_kIocheck; sym_kLocal;
   sym_kHardfloat; sym_kSoftfloat; sym_kMs_abi_default; sym_kMs_abi_cdecl; sym_kSaveregisters;
   sym_kSysv_abi_default; sym_kSysv_abi_cdecl; sym_kVectorcall; sym_kVarargs; sym_kWinapi;
   sym_kAlias; sym_kBegin; sym_kClass; sym_kConst; sym_kConstructor; sym_kDestructor; sym_kEnd;
   sym_kExports; sym_kFinalization; sym_kFunction; sym_kImplementation; sym_kInitialization;
   sym_kInline; sym_kInterface; sym_kLabel; sym_kProcedure; sym_kResourcestring; sym_kThreadvar;
   sym_kType; sym_kUses; sym_kVar]].

(** State 2171. *)
Definition ts_parse_table_2171 : parse_row :=
  [ACTIONS 10638 [anon_sym_LBRACK; aux_sym_ppUsesBlock_token1]; ACTIONS 3 [sym__space];
   ACTIONS 5 [sym_ppDirective]; ACTIONS 3 [sym_comment]; ACTIONS 10638 [sym_identifier;
   sym_kDefault; sym_kNodefault; sym_kDispId; sym_kGeneric; sym_kOperator; sym_kPublished;
   sym_kPublic; sym_kProtected; sym_kPrivate; sym_kStrict; sym_kRequired; sym_kOptional;
   sym_kStatic; sym_kVirtual; sym_kAbstract; sym_kDynamic; sym_kOverride; sym_kOverload;
   sym_kReintroduce; sym_kStdcall; sym_kCdecl; sym_kCppdecl; sym_kPascal; sym_kRegister;
   sym_kMwpascal; sym_kExternal; sym_kMessage; sym_kDeprecated; sym_kExperimental; sym_kPlatform;
   sym_kUnimplemented; sym_kCvar; sym_kExport; sym_kFar; sym_kNear; sym_kSafecall;
   sym_kAssembler; sym_kNostackframe; sym_kInterrupt; sym_kNoreturn; sym_kIocheck; sym_kLocal;
   sym_kHardfloat; sym_kSoftfloat; sym_kMs_abi_default; sym_kMs_abi_cdecl; sym_kSaveregisters;
   sym_kSysv_abi_default; sym_kSysv_abi_cdecl; sym_kVectorcall; sym_kVarargs; sym_kWinapi;
   sym_kAlias; sym_kCase; sym_kClass; sym_kConst; sym_kConstructor; sym_kDestructor; sym_kEnd;
   sym_kFunction; sym_kInline; sym_kProcedure; sym_kProperty; sym_kResourcestring;
   sym_kThreadvar; sym_kType; sym_kVar]].

(** State 2172. *)
Definition ts_parse_table_2172 : parse_row :=
  [ACTIONS 9868 [anon_sym_LBRACK; aux_sym_ppUsesBlock_token1]; ACTIONS 3 [sym__space];
   ACTIONS 5 [sym_ppDirective]; ACTIONS 3 [sym_comment]; ACTIONS 9868 [sym_kDefault;
   sym_kNodefault; sym_kDispId; sym_kGeneric; sym_kOperator; sym_kPublic; sym_kForward;
   sym_kStatic; sym_kVirtual; sym_kAbstract; sym_kDynamic; sym_kOverride; sym_kOverload;
   sym_kReintroduce; sym_kStdcall; sym_kCdecl; sym_kCppdecl; sym_kPascal; sym_kRegister;
   sym_kMwpascal; sym_kExternal; sym_kMessage; sym_kDeprecated; sym_kExperimental; sym_kPlatform;
   sym_kUnimplemented; sym_kCvar; sym_kExport; sym_kFar; sym_kNear; sym_kSafecall;
   sym_kAssembler; sym_kNostackframe; sym_kInterrupt; sym_kNoreturn; sym_kIocheck; sym_kLocal;
   sym_kHardfloat; sym_kSoftfloat; sym_kMs_abi_default; sym_kMs_abi_cdecl; sym_kSaveregisters;
   sym_kSysv_abi_default; sym_kSysv_abi_cdecl; sym_kVectorcall; sym_kVarargs; sym_kWinapi;
   sym_kAlias; sym_kClass; sym_kConst; sym_kConstructor; sym_kDestructor; sym_kEnd; sym_kExports;
   sym_kFinalization; sym_kFunction; sym_kImplementation; sym_kInitialization; sym_kInline;
   sym_kInterface; sym_kLabel; sym_kProcedure; sym_kProperty; sym_kResourcestring;
   sym_kThreadvar; sym_kType; sym_kUses; sym_kVar]].

(** State 2173. *)
Definition ts_parse_table_2173 : parse_row :=
  [STATE 2656 [sym__procAttribute]; STATE 14883 [sym_procAttribute];
   STATE 2338 [sym_procExternal; aux_sym_declVar_repeat2]; ACTIONS 13815 [anon_sym_LBRACK];
   ACTIONS 3883 [aux_sym_ppUsesBlock_token1]; ACTIONS 3 [sym__space];
   ACTIONS 5 [sym_ppDirective]; ACTIONS 3 [sym_comment]; ACTIONS 3883 [sym_identifier];
   ACTIONS 3890 [sym_kDefault; sym_kNodefault]; ACTIONS 3893 [sym_kDispId];
   ACTIONS 3883 [sym_kGeneric; sym_kOperator]; ACTIONS 3896 [sym_kPublic];
   ACTIONS 3890 [sym_kStatic; sym_kVirtual; sym_kAbstract; sym_kDynamic; sym_kOverride;
   sym_kOverload; sym_kReintroduce; sym_kStdcall; sym_kCdecl; sym_kCppdecl; sym_kPascal;
   sym_kRegister; sym_kMwpascal]; ACTIONS 13763 [sym_kExternal]; ACTIONS 3899 [sym_kMessage];
   ACTIONS 3902 [sym_kDeprecated]; ACTIONS 3890 [sym_kExperimental; sym_kPlatform;
   sym_kUnimplemented; sym_kCvar]; ACTIONS 3905 [sym_kExport]; ACTIONS 3890 [sym_kFar; sym_kNear;
   sym_kSafecall; sym_kAssembler; sym_kNostackframe; sym_kInterrupt; sym_kNoreturn; sym_kIocheck;
   sym_kLocal; sym_kHardfloat; sym_kSoftfloat; sym_kMs_abi_default; sym_kMs_abi_cdecl;
   sym_kSaveregisters; sym_kSysv_abi_default; sym_kSysv_abi_cdecl; sym_kVectorcall; sym_kVarargs;
   sym_kWinapi]; ACTIONS 3908 [sym_kAlias]; ACTIONS 3883 [sym_kBegin; sym_kClass; sym_kConst;
   sym_kConstructor; sym_kDestructor; sym_kEnd; sym_kExports; sym_kFunction];
   ACTIONS 1016 [sym_kInline]; ACTIONS 3883 [sym_kLabel; sym_kProcedure; sym_kResourcestring;
   sym_kThreadvar; sym_kType; sym_kUses; sym_kVar]].

(** State 2174. *)
Definition ts_parse_table_2174 : parse_row :=
  [STATE 2656 [sym__procAttribute]; STATE 14883 [sym_procAttribute];
   STATE 2338 [sym_procExternal; aux_sym_declVar_repeat2]; ACTIONS 13818 [anon_sym_LBRACK];
   ACTIONS 3942 [aux_sym_ppUsesBlock_token1]; ACTIONS 3 [sym__space];
   ACTIONS 5 [sym_ppDirective]; ACTIONS 3 [sym_comment]; ACTIONS 3942 [sym_identifier];
   ACTIONS 3949 [sym_kDefault; sym_kNodefault]; ACTIONS 3952 [sym_kDispId];
   ACTIONS 3942 [sym_kGeneric; sym_kOperator]; ACTIONS 3955 [sym_kPublic];
   ACTIONS 3949 [sym_kStatic; sym_kVirtual; sym_kAbstract; sym_kDynamic; sym_kOverride;
   sym_kOverload; sym_kReintroduce; sym_kStdcall; sym_kCdecl; sym_kCppdecl; sym_kPascal;
   sym_kRegister; sym_kMwpascal]; ACTIONS 13763 [sym_kExternal]; ACTIONS 3958 [sym_kMessage];
   ACTIONS 3961 [sym_kDeprecated]; ACTIONS 3949 [sym_kExperimental; sym_kPlatform;
   sym_kUnimplemented; sym_kCvar]; ACTIONS 3964 [sym_kExport]; ACTIONS 3949 [sym_kFar; sym_kNear;
   sym_kSafecall; sym_kAssembler; sym_kNostackframe; sym_kInterrupt; sym_kNoreturn; sym_kIocheck;
   sym_kLocal; sym_kHardfloat; sym_kSoftfloat; sym_kMs_abi_default; sym_kMs_abi_cdecl;
   sym_kSaveregisters; sym_kSysv_abi_default; sym_kSysv_abi_cdecl; sym_kVectorcall; sym_kVarargs;
   sym_kWinapi]; ACTIONS 3967 [sym_kAlias]; ACTIONS 3942 [sym_kBegin; sym_kClass; sym_kConst;
   sym_kConstructor; sym_kDestructor; sym_kEnd; sym_kExports; sym_kFunction];
   ACTIONS 1016 [sym_kInline]; ACTIONS 3942 [sym_kLabel; sym_kProcedure; sym_kResourcestring;
   sym_kThreadvar; sym_kType; sym_kUses; sym_kVar]].

(** State 2175. *)
Definition ts_parse_table_2175 : parse_row :=
  [STATE 2656 [sym__procAttribute]; STATE 14883 [sym_procAttribute];
   STATE 2192 [sym_procExternal; aux_sym_declVar_repeat2]; ACTIONS 13821 [anon_sym_LBRACK];
   ACTIONS 3970 [aux_sym_ppUsesBlock_token1]; ACTIONS 3 [sym__space];
   ACTIONS 5 [sym_ppDirective]; ACTIONS 3 [sym_comment]; ACTIONS 3970 [sym_identifier];
   ACTIONS 3977 [sym_kDefault; sym_kNodefault]; ACTIONS 3980 [sym_kDispId];
   ACTIONS 3970 [sym_kGeneric; sym_kOperator]; ACTIONS 3983 [sym_kPublic];
   ACTIONS 3977 [sym_kStatic; sym_kVirtual; sym_kAbstract; sym_kDynamic; sym_kOverride;
   sym_kOverload; sym_kReintroduce; sym_kStdcall; sym_kCdecl; sym_kCppdecl; sym_kPascal;
   sym_kRegister; sym_kMwpascal]; ACTIONS 13763 [sym_kExternal]; ACTIONS 3986 [sym_kMessage];
   ACTIONS 3989 [sym_kDeprecated]; ACTIONS 3977 [sym_kExperimental; sym_kPlatform;
   sym_kUnimplemented; sym_kCvar]; ACTIONS 3992 [sym_kExport]; ACTIONS 3977 [sym_kFar; sym_kNear;
   sym_kSafecall; sym_kAssembler; sym_kNostackframe; sym_kInterrupt; sym_kNoreturn; sym_kIocheck;
   sym_kLocal; sym_kHardfloat; sym_kSoftfloat; sym_kMs_abi_default; sym_kMs_abi_cdecl;
   sym_kSaveregisters; sym_kSysv_abi_default; sym_kSysv_abi_cdecl; sym_kVectorcall; sym_kVarargs;
   sym_kWinapi]; ACTIONS 3995 [sym_kAlias]; ACTIONS 3970 [sym_kBegin; sym_kClass; sym_kConst;
   sym_kConstructor; sym_kDestructor; sym_kEnd; sym_kExports; sym_kFunction];
   ACTIONS 1016 [sym_kInline]; ACTIONS 3970 [sym_kLabel; sym_kProcedure; sym_kResourcestring;
   sym_kThreadvar; sym_kType; sym_kUses; sym_kVar]].

(** State 2176. *)
Definition ts_parse_table_2176 : parse_row :=
  [STATE 2656 [sym__procAttribute]; STATE 14883 [sym_procAttribute];
   STATE 2338 [sym_procExternal; aux_sym_declVar_repeat2]; ACTIONS 13824 [anon_sym_LBRACK];
   ACTIONS 4057 [aux_sym_ppUsesBlock_token1]; ACTIONS 3 [sym__space];
   ACTIONS 5 [sym_ppDirective]; ACTIONS 3 [sym_comment]; ACTIONS 4057 [sym_identifier];
   ACTIONS 4064 [sym_kDefault; sym_kNodefault]; ACTIONS 4067 [sym_kDispId];
   ACTIONS 4057 [sym_kGeneric; sym_kOperator]; ACTIONS 4070 [sym_kPublic];
   ACTIONS 4064 [sym_kStatic; sym_kVirtual; sym_kAbstract; sym_kDynamic; sym_kOverride;
   sym_kOverload; sym_kReintroduce; sym_kStdcall; sym_kCdecl; sym_kCppdecl; sym_kPascal;
   sym_kRegister; sym_kMwpascal]; ACTIONS 13763 [sym_kExternal]; ACTIONS 4073 [sym_kMessage];
   ACTIONS 4076 [sym_kDeprecated]; ACTIONS 4064 [sym_kExperimental; sym_kPlatform;
   sym_kUnimplemented; sym_kCvar]; ACTIONS 4079 [sym_kExport]; ACTIONS 4064 [sym_kFar; sym_kNear;
   sym_kSafecall; sym_kAssembler; sym_kNostackframe; sym_kInterrupt; sym_kNoreturn; sym_kIocheck;
   sym_kLocal; sym_kHardfloat; sym_kSoftfloat; sym_kMs_abi_default; sym_kMs_abi_cdecl;
   sym_kSaveregisters; sym_kSysv_abi_default; sym_kSysv_abi_cdecl; sym_kVectorcall; sym_kVarargs;
   sym_kWinapi]; ACTIONS 4082 [sym_kAlias]; ACTIONS 4057 [sym_kBegin; sym_kClass; sym_kConst;
   sym_kConstructor; sym_kDestructor; sym_kEnd; sym_kExports; sym_kFunction];
   ACTIONS 1016 [sym_kInline]; ACTIONS 4057 [sym_kLabel; sym_kProcedure; sym_kResourcestring;
   sym_kThreadvar; sym_kType; sym_kUses; sym_kVar]].

(** State 2177. *)
Definition ts_parse_table_2177 : parse_row :=
  [STATE 2656 [sym__procAttribute]; STATE 14883 [sym_procAttribute];
   STATE 2193 [sym_procExternal; aux_sym_declVar_repeat2]; ACTIONS 13827 [anon_sym_LBRACK];
   ACTIONS 4178 [aux_sym_ppUsesBlock_token1]; ACTIONS 3 [sym__space];
   ACTIONS 5 [sym_ppDirective]; ACTIONS 3 [sym_comment]; ACTIONS 4178 [sym_identifier];
   ACTIONS 4185 [sym_kDefault; sym_kNodefault]; ACTIONS 4188 [sym_kDispId];
   ACTIONS 4178 [sym_kGeneric; sym_kOperator]; ACTIONS 4191 [sym_kPublic];
   ACTIONS 4185 [sym_kStatic; sym_kVirtual; sym_kAbstract; sym_kDynamic; sym_kOverride;
   sym_kOverload; sym_kReintroduce; sym_kStdcall; sym_kCdecl; sym_kCppdecl; sym_kPascal;
   sym_kRegister; sym_kMwpascal]; ACTIONS 13763 [sym_kExternal]; ACTIONS 4194 [sym_kMessage];
   ACTIONS 4197 [sym_kDeprecated]; ACTIONS 4185 [sym_kExperimental; sym_kPlatform;
   sym_kUnimplemented; sym_kCvar]; ACTIONS 4200 [sym_kExport]; ACTIONS 4185 [sym_kFar; sym_kNear;
   sym_kSafecall; sym_kAssembler; sym_kNostackframe; sym_kInterrupt; sym_kNoreturn; sym_kIocheck;
   sym_kLocal; sym_kHardfloat; sym_kSoftfloat; sym_kMs_abi_default; sym_kMs_abi_cdecl;
   sym_kSaveregisters; sym_kSysv_abi_default; sym_kSysv_abi_cdecl; sym_kVectorcall; sym_kVarargs;
   sym_kWinapi]; ACTIONS 4203 [sym_kAlias]; ACTIONS 4178 [sym_kBegin; sym_kClass; sym_kConst;
   sym_kConstructor; sym_kDestructor; sym_kEnd; sym_kExports; sym_kFunction];
   ACTIONS 1016 [sym_kInline]; ACTIONS 4178 [sym_kLabel; sym_kProcedure; sym_kResourcestring;
   sym_kThreadvar; sym_kType; sym_kUses; sym_kVar]].

(** State 2178. *)
Definition ts_parse_table_2178 : parse_row :=
  [STATE 2656 [sym__procAttribute]; STATE 14883 [sym_procAttribute];
   STATE 2338 [sym_procExternal; aux_sym_declVar_repeat2]; ACTIONS 13830 [anon_sym_LBRACK];
   ACTIONS 4237 [aux_sym_ppUsesBlock_token1]; ACTIONS 3 [sym__space];
   ACTIONS 5 [sym_ppDirective]; ACTIONS 3 [sym_comment]; ACTIONS 4237 [sym_identifier];
   ACTIONS 4244 [sym_kDefault; sym_kNodefault]; ACTIONS 4247 [sym_kDispId];
   ACTIONS 4237 [sym_kGeneric; sym_kOperator]; ACTIONS 4250 [sym_kPublic];
   ACTIONS 4244 [sym_kStatic; sym_kVirtual; sym_kAbstract; sym_kDynamic; sym_kOverride;
   sym_kOverload; sym_kReintroduce; sym_kStdcall; sym_kCdecl; sym_kCppdecl; sym_kPascal;
   sym_kRegister; sym_kMwpascal]; ACTIONS 13763 [sym_kExternal]; ACTIONS 4253 [sym_kMessage];
   ACTIONS 4256 [sym_kDeprecated]; ACTIONS 4244 [sym_kExperimental; sym_kPlatform;
   sym_kUnimplemented; sym_kCvar]; ACTIONS 4259 [sym_kExport]; ACTIONS 4244 [sym_kFar; sym_kNear;
   sym_kSafecall; sym_kAssembler; sym_kNostackframe; sym_kInterrupt; sym_kNoreturn; sym_kIocheck;
   sym_kLocal; sym_kHardfloat; sym_kSoftfloat; sym_kMs_abi_default; sym_kMs_abi_cdecl;
   sym_kSaveregisters; sym_kSysv_abi_default; sym_kSysv_abi_cdecl; sym_kVectorcall; sym_kVarargs;
   sym_kWinapi]; ACTIONS 4262 [sym_kAlias]; ACTIONS 4237 [sym_kBegin; sym_kClass; sym_kConst;
   sym_kConstructor; sym_kDestructor; sym_kEnd; sym_kExports; sym_kFunction];
   ACTIONS 1016 [sym_kInline]; ACTIONS 4237 [sym_kLabel; sym_kProcedure; sym_kResourcestring;
   sym_kThreadvar; sym_kType; sym_kUses; sym_kVar]].

(** State 2179. *)
Definition ts_parse_table_2179 : parse_row :=
  [STATE 2656 [sym__procAttribute]; STATE 14883 [sym_procAttribute];
   STATE 2338 [sym_procExternal; aux_sym_declVar_repeat2]; ACTIONS 13833 [anon_sym_LBRACK];
   ACTIONS 4447 [aux_sym_ppUsesBlock_token1]; ACTIONS 3 [sym__space];
   ACTIONS 5 [sym_ppDirective]; ACTIONS 3 [sym_comment]; ACTIONS 4447 [sym_identifier];
   ACTIONS 4454 [sym_kDefault; sym_kNodefault]; ACTIONS 4457 [sym_kDispId];
   ACTIONS 4447 [sym_kGeneric; sym_kOperator]; ACTIONS 4460 [sym_kPublic];
   ACTIONS 4454 [sym_kStatic; sym_kVirtual; sym_kAbstract; sym_kDynamic; sym_kOverride;
   sym_kOverload; sym_kReintroduce; sym_kStdcall; sym_kCdecl; sym_kCppdecl; sym_kPascal;
   sym_kRegister; sym_kMwpascal]; ACTIONS 13763 [sym_kExternal]; ACTIONS 4463 [sym_kMessage];
   ACTIONS 4466 [sym_kDeprecated]; ACTIONS 4454 [sym_kExperimental; sym_kPlatform;
   sym_kUnimplemented; sym_kCvar]; ACTIONS 4469 [sym_kExport]; ACTIONS 4454 [sym_kFar; sym_kNear;
   sym_kSafecall; sym_kAssembler; sym_kNostackframe; sym_kInterrupt; sym_kNoreturn; sym_kIocheck;
   sym_kLocal; sym_kHardfloat; sym_kSoftfloat; sym_kMs_abi_default; sym_kMs_abi_cdecl;
   sym_kSaveregisters; sym_kSysv_abi_default; sym_kSysv_abi_cdecl; sym_kVectorcall; sym_kVarargs;
   sym_kWinapi]; ACTIONS 4472 [sym_kAlias]; ACTIONS 4447 [sym_kBegin; sym_kClass; sym_kConst;
   sym_kConstructor; sym_kDestructor; sym_kEnd; sym_kExports; sym_kFunction];
   ACTIONS 1016 [sym_kInline]; ACTIONS 4447 [sym_kLabel; sym_kProcedure; sym_kResourcestring;
   sym_kThreadvar; sym_kType; sym_kUses; sym_kVar]].

(** State 2180. *)
Definition ts_parse_table_2180 : parse_row :=
  [STATE 2656 [sym__procAttribute]; STATE 14883 [sym_procAttribute];
   STATE 2195 [sym_procExternal; aux_sym_declVar_repeat2]; ACTIONS 13836 [anon_sym_LBRACK];
   ACTIONS 4879 [aux_sym_ppUsesBlock_token1]; ACTIONS 3 [sym__space];
   ACTIONS 5 [sym_ppDirective]; ACTIONS 3 [sym_comment]; ACTIONS 4879 [sym_identifier];
   ACTIONS 4886 [sym_kDefault; sym_kNodefault]; ACTIONS 4889 [sym_kDispId];
   ACTIONS 4879 [sym_kGeneric; sym_kOperator]; ACTIONS 4892 [sym_kPublic];
   ACTIONS 4886 [sym_kStatic; sym_kVirtual; sym_kAbstract; sym_kDynamic; sym_kOverride;
   sym_kOverload; sym_kReintroduce; sym_kStdcall; sym_kCdecl; sym_kCppdecl; sym_kPascal;
   sym_kRegister; sym_kMwpascal]; ACTIONS 13763 [sym_kExternal]; ACTIONS 4895 [sym_kMessage];
   ACTIONS 4898 [sym_kDeprecated]; ACTIONS 4886 [sym_kExperimental; sym_kPlatform;
   sym_kUnimplemented; sym_kCvar]; ACTIONS 4901 [sym_kExport]; ACTIONS 4886 [sym_kFar; sym_kNear;
   sym_kSafecall; sym_kAssembler; sym_kNostackframe; sym_kInterrupt; sym_kNoreturn; sym_kIocheck;
   sym_kLocal; sym_kHardfloat; sym_kSoftfloat; sym_kMs_abi_default; sym_kMs_abi_cdecl;
   sym_kSaveregisters; sym_kSysv_abi_default; sym_kSysv_abi_cdecl; sym_kVectorcall; sym_kVarargs;
   sym_kWinapi]; ACTIONS 4904 [sym_kAlias]; ACTIONS 4879 [sym_kBegin; sym_kClass; sym_kConst;
   sym_kConstructor; sym_kDestructor; sym_kEnd; sym_kExports; sym_kFunction];
   ACTIONS 1016 [sym_kInline]; ACTIONS 4879 [sym_kLabel; sym_kProcedure; sym_kResourcestring;
   sym_kThreadvar; sym_kType; sym_kUses; sym_kVar]].

(** State 2181. *)
Definition ts_parse_table_2181 : parse_row :=
  [STATE 2656 [sym__procAttribute]; STATE 14883 [sym_procAttribute];
   STATE 2338 [sym_procExternal; aux_sym_declVar_repeat2]; ACTIONS 13839 [anon_sym_LBRACK];
   ACTIONS 4969 [aux_sym_ppUsesBlock_token1]; ACTIONS 3 [sym__space];
   ACTIONS 5 [sym_ppDirective]; ACTIONS 3 [sym_comment]; ACTIONS 4969 [sym_identifier];
   ACTIONS 4976 [sym_kDefault; sym_kNodefault]; ACTIONS 4979 [sym_kDispId];
   ACTIONS 4969 [sym_kGeneric; sym_kOperator]; ACTIONS 4982 [sym_kPublic];
   ACTIONS 4976 [sym_kStatic; sym_kVirtual; sym_kAbstract; sym_kDynamic; sym_kOverride;
   sym_kOverload; sym_kReintroduce; sym_kStdcall; sym_kCdecl; sym_kCppdecl; sym_kPascal;
   sym_kRegister; sym_kMwpascal]; ACTIONS 13763 [sym_kExternal]; ACTIONS 4985 [sym_kMessage];
   ACTIONS 4988 [sym_kDeprecated]; ACTIONS 4976 [sym_kExperimental; sym_kPlatform;
   sym_kUnimplemented; sym_kCvar]; ACTIONS 4991 [sym_kExport]; ACTIONS 4976 [sym_kFar; sym_kNear;
   sym_kSafecall; sym_kAssembler; sym_kNostackframe; sym_kInterrupt; sym_kNoreturn; sym_kIocheck;
   sym_kLocal; sym_kHardfloat; sym_kSoftfloat; sym_kMs_abi_default; sym_kMs_abi_cdecl;
   sym_kSaveregisters; sym_kSysv_abi_default; sym_kSysv_abi_cdecl; sym_kVectorcall; sym_kVarargs;
   sym_kWinapi]; ACTIONS 4994 [sym_kAlias]; ACTIONS 4969 [sym_kBegin; sym_kClass; sym_kConst;
   sym_kConstructor; sym_kDestructor; sym_kEnd; sym_kExports; sym_kFunction];
   ACTIONS 1016 [sym_kInline]; ACTIONS 4969 [sym_kLabel; sym_kProcedure; sym_kResourcestring;
   sym_kThreadvar; sym_kType; sym_kUses; sym_kVar]].

(** State 2182. *)
Definition ts_parse_table_2182 : parse_row :=
  [STATE 2656 [sym__procAttribute]; STATE 14883 [sym_procAttribute];
   STATE 2197 [sym_procExternal; aux_sym_declVar_repeat2]; ACTIONS 13842 [anon_sym_LBRACK];
   ACTIONS 5221 [aux_sym_ppUsesBlock_token1]; ACTIONS 3 [sym__space];
   ACTIONS 5 [sym_ppDirective]; ACTIONS 3 [sym_comment]; ACTIONS 5221 [sym_identifier];
   ACTIONS 5228 [sym_kDefault; sym_kNodefault]; ACTIONS 5231 [sym_kDispId];
   ACTIONS 5221 [sym_kGeneric; sym_kOperator]; ACTIONS 5234 [sym_kPublic];
   ACTIONS 5228 [sym_kStatic; sym_kVirtual; sym_kAbstract; sym_kDynamic; sym_kOverride;
   sym_kOverload; sym_kReintroduce; sym_kStdcall; sym_kCdecl; sym_kCppdecl; sym_kPascal;
   sym_kRegister; sym_kMwpascal]; ACTIONS 13763 [sym_kExternal]; ACTIONS 5237 [sym_kMessage];
   ACTIONS 5240 [sym_kDeprecated]; ACTIONS 5228 [sym_kExperimental; sym_kPlatform;
   sym_kUnimplemented; sym_kCvar]; ACTIONS 5243 [sym_kExport]; ACTIONS 5228 [sym_kFar; sym_kNear;
   sym_kSafecall; sym_kAssembler; sym_kNostackframe; sym_kInterrupt; sym_kNoreturn; sym_kIocheck;
   sym_kLocal; sym_kHardfloat; sym_kSoftfloat; sym_kMs_abi_default; sym_kMs_abi_cdecl;
   sym_kSaveregisters; sym_kSysv_abi_default; sym_kSysv_abi_cdecl; sym_kVectorcall; sym_kVarargs;
   sym_kWinapi]; ACTIONS 5246 [sym_kAlias]; ACTIONS 5221 [sym_kBegin; sym_kClass; sym_kConst;
   sym_kConstructor; sym_kDestructor; sym_kEnd; sym_kExports; sym_kFunction];
   ACTIONS 1016 [sym_kInline]; ACTIONS 5221 [sym_kLabel; sym_kProcedure; sym_kResourcestring;
   sym_kThreadvar; sym_kType; sym_kUses; sym_kVar]].

(** State 2183. *)
Definition ts_parse_table_2183 : parse_row :=
  [STATE 2656 [sym__procAttribute]; STATE 14883 [sym_procAttribute];
   STATE 2198 [sym_procExternal; aux_sym_declVar_repeat2]; ACTIONS 13845 [anon_sym_LBRACK];
   ACTIONS 5308 [aux_sym_ppUsesBlock_token1]; ACTIONS 3 [sym__space];
   ACTIONS 5 [sym_ppDirective]; ACTIONS 3 [sym_comment]; ACTIONS 5308 [sym_identifier];
   ACTIONS 5315 [sym_kDefault; sym_kNodefault]; ACTIONS 5318 [sym_kDispId];
   ACTIONS 5308 [sym_kGeneric; sym_kOperator]; ACTIONS 5321 [sym_kPublic];
   ACTIONS 5315 [sym_kStatic; sym_kVirtual; sym_kAbstract; sym_kDynamic; sym_kOverride;
   sym_kOverload; sym_kReintroduce; sym_kStdcall; sym_kCdecl; sym_kCppdecl; sym_kPascal;
   sym_kRegister; sym_kMwpascal]; ACTIONS 13763 [sym_kExternal]; ACTIONS 5324 [sym_kMessage];
   ACTIONS 5327 [sym_kDeprecated]; ACTIONS 5315 [sym_kExperimental; sym_kPlatform;
   sym_kUnimplemented; sym_kCvar]; ACTIONS 5330 [sym_kExport]; ACTIONS 5315 [sym_kFar; sym_kNear;
   sym_kSafecall; sym_kAssembler; sym_kNostackframe; sym_kInterrupt; sym_kNoreturn; sym_kIocheck;
   sym_kLocal; sym_kHardfloat; sym_kSoftfloat; sym_kMs_abi_default; sym_kMs_abi_cdecl;
   sym_kSaveregisters; sym_kSysv_abi_default; sym_kSysv_abi_cdecl; sym_kVectorcall; sym_kVarargs;
   sym_kWinapi]; ACTIONS 5333 [sym_kAlias]; ACTIONS 5308 [sym_kBegin; sym_kClass; sym_kConst;
   sym_kConstructor; sym_kDestructor; sym_kEnd; sym_kExports; sym_kFunction];
   ACTIONS 1016 [sym_kInline]; ACTIONS 5308 [sym_kLabel; sym_kProcedure; sym_kResourcestring;
   sym_kThreadvar; sym_kType; sym_kUses; sym_kVar]].

(** State 2184. *)
Definition ts_parse_table_2184 : parse_row :=
  [STATE 2656 [sym__procAttribute]; STATE 14883 [sym_procAttribute];
   STATE 2338 [sym_procExternal; aux_sym_declVar_repeat2]; ACTIONS 13848 [anon_sym_LBRACK];
   ACTIONS 5373 [aux_sym_ppUsesBlock_token1]; ACTIONS 3 [sym__space];
   ACTIONS 5 [sym_ppDirective]; ACTIONS 3 [sym_comment]; ACTIONS 5373 [sym_identifier];
   ACTIONS 5380 [sym_kDefault; sym_kNodefault]; ACTIONS 5383 [sym_kDispId];
   ACTIONS 5373 [sym_kGeneric; sym_kOperator]; ACTIONS 5386 [sym_kPublic];
   ACTIONS 5380 [sym_kStatic; sym_kVirtual; sym_kAbstract; sym_kDynamic; sym_kOverride;
   sym_kOverload; sym_kReintroduce; sym_kStdcall; sym_kCdecl; sym_kCppdecl; sym_kPascal;
   sym_kRegister; sym_kMwpascal]; ACTIONS 13763 [sym_kExternal]; ACTIONS 5389 [sym_kMessage];
   ACTIONS 5392 [sym_kDeprecated]; ACTIONS 5380 [sym_kExperimental; sym_kPlatform;
   sym_kUnimplemented; sym_kCvar]; ACTIONS 5395 [sym_kExport]; ACTIONS 5380 [sym_kFar; sym_kNear;
   sym_kSafecall; sym_kAssembler; sym_kNostackframe; sym_kInterrupt; sym_kNoreturn; sym_kIocheck;
   sym_kLocal; sym_kHardfloat; sym_kSoftfloat; sym_kMs_abi_default; sym_kMs_abi_cdecl;
   sym_kSaveregisters; sym_kSysv_abi_default; sym_kSysv_abi_cdecl; sym_kVectorcall; sym_kVarargs;
   sym_kWinapi]; ACTIONS 5398 [sym_kAlias]; ACTIONS 5373 [sym_kBegin; sym_kClass; sym_kConst;
   sym_kConstructor; sym_kDestructor; sym_kEnd; sym_kExports; sym_kFunction];
   ACTIONS 1016 [sym_kInline]; ACTIONS 5373 [sym_kLabel; sym_kProcedure; sym_kResourcestring;
   sym_kThreadvar; sym_kType; sym_kUses; sym_kVar]].

(** State 2185. *)
Definition ts_parse_table_2185 : parse_row :=
  [STATE 2656 [sym__procAttribute]; STATE 14883 [sym_procAttribute];
   STATE 2199 [sym_procExternal; aux_sym_declVar_repeat2]; ACTIONS 13851 [anon_sym_LBRACK];
   ACTIONS 5598 [aux_sym_ppUsesBlock_token1]; ACTIONS 3 [sym__space];
   ACTIONS 5 [sym_ppDirective]; ACTIONS 3 [sym_comment]; ACTIONS 5598 [sym_identifier];
   ACTIONS 5605 [sym_kDefault; sym_kNodefault]; ACTIONS 5608 [sym_kDispId];
   ACTIONS 5598 [sym_kGeneric; sym_kOperator]; ACTIONS 5611 [sym_kPublic];
   ACTIONS 5605 [sym_kStatic; sym_kVirtual; sym_kAbstract; sym_kDynamic; sym_kOverride;
   sym_kOverload; sym_kReintroduce; sym_kStdcall; sym_kCdecl; sym_kCppdecl; sym_kPascal;
   sym_kRegister; sym_kMwpascal]; ACTIONS 13763 [sym_kExternal]; ACTIONS 5614 [sym_kMessage];
   ACTIONS 5617 [sym_kDeprecated]; ACTIONS 5605 [sym_kExperimental; sym_kPlatform;
   sym_kUnimplemented; sym_kCvar]; ACTIONS 5620 [sym_kExport]; ACTIONS 5605 [sym_kFar; sym_kNear;
   sym_kSafecall; sym_kAssembler; sym_kNostackframe; sym_kInterrupt; sym_kNoreturn; sym_kIocheck;
   sym_kLocal; sym_kHardfloat; sym_kSoftfloat; sym_kMs_abi_default; sym_kMs_abi_cdecl;
   sym_kSaveregisters; sym_kSysv_abi_default; sym_kSysv_abi_cdecl; sym_kVectorcall; sym_kVarargs;
   sym_kWinapi]; ACTIONS 5623 [sym_kAlias]; ACTIONS 5598 [sym_kBegin; sym_kClass; sym_kConst;
   sym_kConstructor; sym_kDestructor; sym_kEnd; sym_kExports; sym_kFunction];
   ACTIONS 1016 [sym_kInline]; ACTIONS 5598 [sym_kLabel; sym_kProcedure; sym_kResourcestring;
   sym_kThreadvar; sym_kType; sym_kUses; sym_kVar]].

(** State 2186. *)
Definition ts_parse_table_2186 : parse_row :=
  [STATE 2656 [sym__procAttribute]; STATE 14883 [sym_procAttribute];
   STATE 2338 [sym_procExternal; aux_sym_declVar_repeat2]; ACTIONS 13854 [anon_sym_LBRACK];
   ACTIONS 5797 [aux_sym_ppUsesBlock_token1]; ACTIONS 3 [sym__space];
   ACTIONS 5 [sym_ppDirective]; ACTIONS 3 [sym_comment]; ACTIONS 5797 [sym_identifier];
   ACTIONS 5804 [sym_kDefault; sym_kNodefault]; ACTIONS 5807 [sym_kDispId];
   ACTIONS 5797 [sym_kGeneric; sym_kOperator]; ACTIONS 5810 [sym_kPublic];
   ACTIONS 5804 [sym_kStatic; sym_kVirtual; sym_kAbstract; sym_kDynamic; sym_kOverride;
   sym_kOverload; sym_kReintroduce; sym_kStdcall; sym_kCdecl; sym_kCppdecl; sym_kPascal;
   sym_kRegister; sym_kMwpascal]; ACTIONS 13763 [sym_kExternal]; ACTIONS 5813 [sym_kMessage];
   ACTIONS 5816 [sym_kDeprecated]; ACTIONS 5804 [sym_kExperimental; sym_kPlatform;
   sym_kUnimplemented; sym_kCvar]; ACTIONS 5819 [sym_kExport]; ACTIONS 5804 [sym_kFar; sym_kNear;
   sym_kSafecall; sym_kAssembler; sym_kNostackframe; sym_kInterrupt; sym_kNoreturn; sym_kIocheck;
   sym_kLocal; sym_kHardfloat; sym_kSoftfloat; sym_kMs_abi_default; sym_kMs_abi_cdecl;
   sym_kSaveregisters; sym_kSysv_abi_default; sym_kSysv_abi_cdecl; sym_kVectorcall; sym_kVarargs;
   sym_kWinapi]; ACTIONS 5822 [sym_kAlias]; ACTIONS 5797 [sym_kBegin; sym_kClass; sym_kConst;
   sym_kConstructor; sym_kDestructor; sym_kEnd; sym_kExports; sym_kFunction];
   ACTIONS 1016 [sym_kInline]; ACTIONS 5797 [sym_kLabel; sym_kProcedure; sym_kResourcestring;
   sym_kThreadvar; sym_kType; sym_kUses; sym_kVar]].

(** State 2187. *)
Definition ts_parse_table_2187 : parse_row :=
  [ACTIONS 9910 [anon_sym_LBRACK; aux_sym_ppUsesBlock_token1]; ACTIONS 3 [sym__space];
   ACTIONS 5 [sym_ppDirective]; ACTIONS 3 [sym_comment]; ACTIONS 9910 [sym_kDefault;
   sym_kNodefault; sym_kDispId; sym_kGeneric; sym_kOperator; sym_kPublic; sym_kForward;
   sym_kStatic; sym_kVirtual; sym_kAbstract; sym_kDynamic; sym_kOverride; sym_kOverload;
   sym_kReintroduce; sym_kStdcall; sym_kCdecl; sym_kCppdecl; sym_kPascal; sym_kRegister;
   sym_kMwpascal; sym_kExternal; sym_kMessage; sym_kDeprecated; sym_kExperimental; sym_kPlatform;
   sym_kUnimplemented; sym_kCvar; sym_kExport; sym_kFar; sym_kNear; sym_kSafecall;
   sym_kAssembler; sym_kNostackframe; sym_kInterrupt; sym_kNoreturn; sym_kIocheck; sym_kLocal;
   sym_kHardfloat; sym_kSoftfloat; sym_kMs_abi_default; sym_kMs_abi_cdecl; sym_kSaveregisters;
   sym_kSysv_abi_default; sym_kSysv_abi_cdecl; sym_kVectorcall; sym_kVarargs; sym_kWinapi;
   sym_kAlias; sym_kClass; sym_kConst; sym_kConstructor; sym_kDestructor; sym_kEnd; sym_kExports;
   sym_kFinalization; sym_kFunction; sym_kImplementation; sym_kInitialization; sym_kInline;
   sym_kInterface; sym_kLabel; sym_kProcedure; sym_kProperty; sym_kResourcestring;
   sym_kThreadvar; sym_kType; sym_kUses; sym_kVar]].

(** State 2188. *)
Definition ts_parse_table_2188 : parse_row :=
  [ACTIONS 10630 [anon_sym_LBRACK; aux_sym_ppUsesBlock_token1]; ACTIONS 3 [sym__space];
   ACTIONS 5 [sym_ppDirective]; ACTIONS 3 [sym_comment]; ACTIONS 10630 [sym_identifier;
   sym_kDefault; sym_kNodefault; sym_kDispId; sym_kGeneric; sym_kOperator; sym_kPublic;
   sym_kStatic; sym_kVirtual; sym_kAbstract; sym_kDynamic; sym_kOverride; sym_kOverload;
   sym_kReintroduce; sym_kStdcall; sym_kCdecl; sym_kCppdecl; sym_kPascal; sym_kRegister;
   sym_kMwpascal; sym_kExternal; sym_kMessage; sym_kDeprecated; sym_kExperimental; sym_kPlatform;
   sym_kUnimplemented; sym_kCvar; sym_kExport; sym_kFar; sym_kNear; sym_kSafecall;
   sym_kAssembler; sym_kNostackframe; sym_kInterrupt; sym_kNoreturn; sym_kIocheck; sym_kLocal;
   sym_kHardfloat; sym_kSoftfloat; sym_kMs_abi_default; sym_kMs_abi_cdecl; sym_kSaveregisters;
   sym_kSysv_abi_default; sym_kSysv_abi_cdecl; sym_kVectorcall; sym_kVarargs; sym_kWinapi;
   sym_kAlias; sym_kBegin; sym_kClass; sym_kConst; sym_kConstructor; sym_kDestructor; sym_kEnd;
   sym_kExports; sym_kFinalization; sym_kFunction; sym_kImplementation; sym_kInitialization;
   sym_kInline; sym_kInterface; sym_kLabel; sym_kProcedure; sym_kResourcestring; sym_kThreadvar;
   sym_kType; sym_kUses; sym_kVar]].

(** State 2189. *)
Definition ts_parse_table_2189 : parse_row :=
  [ACTIONS 10404 [anon_sym_LBRACK; aux_sym_ppUsesBlock_token1]; ACTIONS 3 [sym__space];
   ACTIONS 5 [sym_ppDirective]; ACTIONS 3 [sym_comment]; ACTIONS 10404 [sym_identifier;
   sym_kDefault; sym_kNodefault; sym_kDispId; sym_kGeneric; sym_kOperator; sym_kPublic;
   sym_kStatic; sym_kVirtual; sym_kAbstract; sym_kDynamic; sym_kOverride; sym_kOverload;
   sym_kReintroduce; sym_kStdcall; sym_kCdecl; sym_kCppdecl; sym_kPascal; sym_kRegister;
   sym_kMwpascal; sym_kExternal; sym_kMessage; sym_kDeprecated; sym_kExperimental; sym_kPlatform;
   sym_kUnimplemented; sym_kCvar; sym_kExport; sym_kFar; sym_kNear; sym_kSafecall;
   sym_kAssembler; sym_kNostackframe; sym_kInterrupt; sym_kNoreturn; sym_kIocheck; sym_kLocal;
   sym_kHardfloat; sym_kSoftfloat; sym_kMs_abi_default; sym_kMs_abi_cdecl; sym_kSaveregisters;
   sym_kSysv_abi_default; sym_kSysv_abi_cdecl; sym_kVectorcall; sym_kVarargs; sym_kWinapi;
   sym_kAlias; sym_kBegin; sym_kClass; sym_kConst; sym_kConstructor; sym_kDestructor; sym_kEnd;
   sym_kExports; sym_kFinalization; sym_kFunction; sym_kImplementation; sym_kInitialization;
   sym_kInline; sym_kInterface; sym_kLabel; sym_kProcedure; sym_kResourcestring; sym_kThreadvar;
   sym_kType; sym_kUses; sym_kVar]].

(** State 2190. *)
Definition ts_parse_table_2190 : parse_row :=
  [ACTIONS 10566 [anon_sym_LBRACK; aux_sym_ppUsesBlock_token1]; ACTIONS 3 [sym__space];
   ACTIONS 5 [sym_ppDirective]; ACTIONS 3 [sym_comment]; ACTIONS 10566 [sym_identifier;
   sym_kDefault; sym_kNodefault; sym_kDispId; sym_kGeneric; sym_kOperator; sym_kPublic;
   sym_kStatic; sym_kVirtual; sym_kAbstract; sym_kDynamic; sym_kOverride; sym_kOverload;
   sym_kReintroduce; sym_kStdcall; sym_kCdecl; sym_kCppdecl; sym_kPascal; sym_kRegister;
   sym_kMwpascal; sym_kExternal; sym_kMessage; sym_kDeprecated; sym_kExperimental; sym_kPlatform;
   sym_kUnimplemented; sym_kCvar; sym_kExport; sym_kFar; sym_kNear; sym_kSafecall;
   sym_kAssembler; sym_kNostackframe; sym_kInterrupt; sym_kNoreturn; sym_kIocheck; sym_kLocal;
   sym_kHardfloat; sym_kSoftfloat; sym_kMs_abi_default; sym_kMs_abi_cdecl; sym_kSaveregisters;
   sym_kSysv_abi_default; sym_kSysv_abi_cdecl; sym_kVectorcall; sym_kVarargs; sym_kWinapi;
   sym_kAlias; sym_kClass; sym_kConst; sym_kConstructor; sym_kDestructor; sym_kEnd; sym_kExports;
   sym_kFinalization; sym_kFunction; sym_kImplementation; sym_kInitialization; sym_kInline;
   sym_kInterface; sym_kLabel; sym_kProcedure; sym_kProperty; sym_kResourcestring;
   sym_kThreadvar; sym_kType; sym_kUses; sym_kVar]].

(** State 2191. *)
Definition ts_parse_table_2191 : parse_row :=
  [STATE 2633 [sym__procAttribute]; STATE 14888 [sym_procAttribute];
   STATE 2266 [sym_procExternal; aux_sym_declVar_repeat2]; ACTIONS 5598 [ts_builtin_sym_end];
   ACTIONS 13857 [anon_sym_LBRACK]; ACTIONS 5598 [aux_sym_ppUsesBlock_token1];
   ACTIONS 3 [sym__space]; ACTIONS 5 [sym_ppDirective]; ACTIONS 3 [sym_comment];
   ACTIONS 5598 [sym_identifier]; ACTIONS 5605 [sym_kDefault; sym_kNodefault];
   ACTIONS 5608 [sym_kDispId]; ACTIONS 5598 [sym_kGeneric; sym_kOperator];
   ACTIONS 5611 [sym_kPublic]; ACTIONS 5605 [sym_kStatic; sym_kVirtual; sym_kAbstract;
   sym_kDynamic; sym_kOverride; sym_kOverload; sym_kReintroduce; sym_kStdcall; sym_kCdecl;
   sym_kCppdecl; sym_kPascal; sym_kRegister; sym_kMwpascal]; ACTIONS 13860 [sym_kExternal];
   ACTIONS 5614 [sym_kMessage]; ACTIONS 5617 [sym_kDeprecated]; ACTIONS 5605 [sym_kExperimental;
   sym_kPlatform; sym_kUnimplemented; sym_kCvar]; ACTIONS 5620 [sym_kExport];
   ACTIONS 5605 [sym_kFar; sym_kNear; sym_kSafecall; sym_kAssembler; sym_kNostackframe;
   sym_kInterrupt; sym_kNoreturn; sym_kIocheck; sym_kLocal; sym_kHardfloat; sym_kSoftfloat;
   sym_kMs_abi_default; sym_kMs_abi_cdecl; sym_kSaveregisters; sym_kSysv_abi_default;
   sym_kSysv_abi_cdecl; sym_kVectorcall; sym_kVarargs; sym_kWinapi]; ACTIONS 5623 [sym_kAlias];
   ACTIONS 5598 [sym_kBegin; sym_kClass; sym_kConst; sym_kConstructor; sym_kDestructor;
   sym_kExports; sym_kFunction]; ACTIONS 1016 [sym_kInline]; ACTIONS 5598 [sym_kLabel;
   sym_kProcedure; sym_kResourcestring; sym_kThreadvar; sym_kType; sym_kUses; sym_kVar]].

(** State 2192. *)
Definition ts_parse_table_2192 : parse_row :=
  [STATE 2656 [sym__procAttribute]; STATE 14883 [sym_procAttribute];
   STATE 2338 [sym_procExternal; aux_sym_declVar_repeat2]; ACTIONS 13862 [anon_sym_LBRACK];
   ACTIONS 4674 [aux_sym_ppUsesBlock_token1]; ACTIONS 3 [sym__space];
   ACTIONS 5 [sym_ppDirective]; ACTIONS 3 [sym_comment]; ACTIONS 4674 [sym_identifier];
   ACTIONS 4681 [sym_kDefault; sym_kNodefault]; ACTIONS 4684 [sym_kDispId];
   ACTIONS 4674 [sym_kGeneric; sym_kOperator]; ACTIONS 4687 [sym_kPublic];
   ACTIONS 4681 [sym_kStatic; sym_kVirtual; sym_kAbstract; sym_kDynamic; sym_kOverride;
   sym_kOverload; sym_kReintroduce; sym_kStdcall; sym_kCdecl; sym_kCppdecl; sym_kPascal;
   sym_kRegister; sym_kMwpascal]; ACTIONS 13763 [sym_kExternal]; ACTIONS 4690 [sym_kMessage];
   ACTIONS 4693 [sym_kDeprecated]; ACTIONS 4681 [sym_kExperimental; sym_kPlatform;
   sym_kUnimplemented; sym_kCvar]; ACTIONS 4696 [sym_kExport]; ACTIONS 4681 [sym_kFar; sym_kNear;
   sym_kSafecall; sym_kAssembler; sym_kNostackframe; sym_kInterrupt; sym_kNoreturn; sym_kIocheck;
   sym_kLocal; sym_kHardfloat; sym_kSoftfloat; sym_kMs_abi_default; sym_kMs_abi_cdecl;
   sym_kSaveregisters; sym_kSysv_abi_default; sym_kSysv_abi_cdecl; sym_kVectorcall; sym_kVarargs;
   sym_kWinapi]; ACTIONS 4699 [sym_kAlias]; ACTIONS 4674 [sym_kBegin; sym_kClass; sym_kConst;
   sym_kConstructor; sym_kDestructor; sym_kEnd; sym_kExports; sym_kFunction];
   ACTIONS 1016 [sym_kInline]; ACTIONS 4674 [sym_kLabel; sym_kProcedure; sym_kResourcestring;
   sym_kThreadvar; sym_kType; sym_kUses; sym_kVar]].

(** State 2193. *)
Definition ts_parse_table_2193 : parse_row :=
  [STATE 2656 [sym__procAttribute]; STATE 14883 [sym_procAttribute];
   STATE 2338 [sym_procExternal; aux_sym_declVar_repeat2]; ACTIONS 13865 [anon_sym_LBRACK];
   ACTIONS 4733 [aux_sym_ppUsesBlock_token1]; ACTIONS 3 [sym__space];
   ACTIONS 5 [sym_ppDirective]; ACTIONS 3 [sym_comment]; ACTIONS 4733 [sym_identifier];
   ACTIONS 4740 [sym_kDefault; sym_kNodefault]; ACTIONS 4743 [sym_kDispId];
   ACTIONS 4733 [sym_kGeneric; sym_kOperator]; ACTIONS 4746 [sym_kPublic];
   ACTIONS 4740 [sym_kStatic; sym_kVirtual; sym_kAbstract; sym_kDynamic; sym_kOverride;
   sym_kOverload; sym_kReintroduce; sym_kStdcall; sym_kCdecl; sym_kCppdecl; sym_kPascal;
   sym_kRegister; sym_kMwpascal]; ACTIONS 13763 [sym_kExternal]; ACTIONS 4749 [sym_kMessage];
   ACTIONS 4752 [sym_kDeprecated]; ACTIONS 4740 [sym_kExperimental; sym_kPlatform;
   sym_kUnimplemented; sym_kCvar]; ACTIONS 4755 [sym_kExport]; ACTIONS 4740 [sym_kFar; sym_kNear;
   sym_kSafecall; sym_kAssembler; sym_kNostackframe; sym_kInterrupt; sym_kNoreturn; sym_kIocheck;
   sym_kLocal; sym_kHardfloat; sym_kSoftfloat; sym_kMs_abi_default; sym_kMs_abi_cdecl;
   sym_kSaveregisters; sym_kSysv_abi_default; sym_kSysv_abi_cdecl; sym_kVectorcall; sym_kVarargs;
   sym_kWinapi]; ACTIONS 4758 [sym_kAlias]; ACTIONS 4733 [sym_kBegin; sym_kClass; sym_kConst;
   sym_kConstructor; sym_kDestructor; sym_kEnd; sym_kExports; sym_kFunction];
   ACTIONS 1016 [sym_kInline]; ACTIONS 4733 [sym_kLabel; sym_kProcedure; sym_kResourcestring;
   sym_kThreadvar; sym_kType; sym_kUses; sym_kVar]].

(** State 2194. *)
Definition ts_parse_table_2194 : parse_row :=
  [STATE 2656 [sym__procAttribute]; STATE 14883 [sym_procAttribute];
   STATE 2201 [sym_procExternal; aux_sym_declVar_repeat2]; ACTIONS 13868 [anon_sym_LBRACK];
   ACTIONS 4851 [aux_sym_ppUsesBlock_token1]; ACTIONS 3 [sym__space];
   ACTIONS 5 [sym_ppDirective]; ACTIONS 3 [sym_comment]; ACTIONS 4851 [sym_identifier];
   ACTIONS 4858 [sym_kDefault; sym_kNodefault]; ACTIONS 4861 [sym_kDispId];
   ACTIONS 4851 [sym_kGeneric; sym_kOperator]; ACTIONS 4864 [sym_kPublic];
   ACTIONS 4858 [sym_kStatic; sym_kVirtual; sym_kAbstract; sym_kDynamic; sym_kOverride;
   sym_kOverload; sym_kReintroduce; sym_kStdcall; sym_kCdecl; sym_kCppdecl; sym_kPascal;
   sym_kRegister; sym_kMwpascal]; ACTIONS 13763 [sym_kExternal]; ACTIONS 4867 [sym_kMessage];
   ACTIONS 4870 [sym_kDeprecated]; ACTIONS 4858 [sym_kExperimental; sym_kPlatform;
   sym_kUnimplemented; sym_kCvar]; ACTIONS 4873 [sym_kExport]; ACTIONS 4858 [sym_kFar; sym_kNear;
   sym_kSafecall; sym_kAssembler; sym_kNostackframe; sym_kInterrupt; sym_kNoreturn; sym_kIocheck;
   sym_kLocal; sym_kHardfloat; sym_kSoftfloat; sym_kMs_abi_default; sym_kMs_abi_cdecl;
   sym_kSaveregisters; sym_kSysv_abi_default; sym_kSysv_abi_cdecl; sym_kVectorcall; sym_kVarargs;
   sym_kWinapi]; ACTIONS 4876 [sym_kAlias]; ACTIONS 4851 [sym_kBegin; sym_kClass; sym_kConst;
   sym_kConstructor; sym_kDestructor; sym_kEnd; sym_kExports; sym_kFunction];
   ACTIONS 1016 [sym_kInline]; ACTIONS 4851 [sym_kLabel; sym_kProcedure; sym_kResourcestring;
   sym_kThreadvar; sym_kType; sym_kUses; sym_kVar]].

(** State 2195. *)
Definition ts_parse_table_2195 : parse_row :=
  [STATE 2656 [sym__procAttribute]; STATE 14883 [sym_procAttribute];
   STATE 2338 [sym_procExternal; aux_sym_declVar_repeat2]; ACTIONS 13871 [anon_sym_LBRACK];
   ACTIONS 4907 [aux_sym_ppUsesBlock_token1]; ACTIONS 3 [sym__space];
   ACTIONS 5 [sym_ppDirective]; ACTIONS 3 [sym_comment]; ACTIONS 4907 [sym_identifier];
   ACTIONS 4914 [sym_kDefault; sym_kNodefault]; ACTIONS 4917 [sym_kDispId];
   ACTIONS 4907 [sym_kGeneric; sym_kOperator]; ACTIONS 4920 [sym_kPublic];
   ACTIONS 4914 [sym_kStatic; sym_kVirtual; sym_kAbstract; sym_kDynamic; sym_kOverride;
   sym_kOverload; sym_kReintroduce; sym_kStdcall; sym_kCdecl; sym_kCppdecl; sym_kPascal;
   sym_kRegister; sym_kMwpascal]; ACTIONS 13763 [sym_kExternal]; ACTIONS 4923 [sym_kMessage];
   ACTIONS 4926 [sym_kDeprecated]; ACTIONS 4914 [sym_kExperimental; sym_kPlatform;
   sym_kUnimplemented; sym_kCvar]; ACTIONS 4929 [sym_kExport]; ACTIONS 4914 [sym_kFar; sym_kNear;
   sym_kSafecall; sym_kAssembler; sym_kNostackframe; sym_kInterrupt; sym_kNoreturn; sym_kIocheck;
   sym_kLocal; sym_kHardfloat; sym_kSoftfloat; sym_kMs_abi_default; sym_kMs_abi_cdecl;
   sym_kSaveregisters; sym_kSysv_abi_default; sym_kSysv_abi_cdecl; sym_kVectorcall; sym_kVarargs;
   sym_kWinapi]; ACTIONS 4932 [sym_kAlias]; ACTIONS 4907 [sym_kBegin; sym_kClass; sym_kConst;
   sym_kConstructor; sym_kDestructor; sym_kEnd; sym_kExports; sym_kFunction];
   ACTIONS 1016 [sym_kInline]; ACTIONS 4907 [sym_kLabel; sym_kProcedure; sym_kResourcestring;
   sym_kThreadvar; sym_kType; sym_kUses; sym_kVar]].

(** State 2196. *)
Definition ts_parse_table_2196 : parse_row :=
  [STATE 2656 [sym__procAttribute]; STATE 14883 [sym_procAttribute];
   STATE 2202 [sym_procExternal; aux_sym_declVar_repeat2]; ACTIONS 13874 [anon_sym_LBRACK];
   ACTIONS 5106 [aux_sym_ppUsesBlock_token1]; ACTIONS 3 [sym__space];
   ACTIONS 5 [sym_ppDirective]; ACTIONS 3 [sym_comment]; ACTIONS 5106 [sym_identifier];
   ACTIONS 5113 [sym_kDefault; sym_kNodefault]; ACTIONS 5116 [sym_kDispId];
   ACTIONS 5106 [sym_kGeneric; sym_kOperator]; ACTIONS 5119 [sym_kPublic];
   ACTIONS 5113 [sym_kStatic; sym_kVirtual; sym_kAbstract; sym_kDynamic; sym_kOverride;
   sym_kOverload; sym_kReintroduce; sym_kStdcall; sym_kCdecl; sym_kCppdecl; sym_kPascal;
   sym_kRegister; sym_kMwpascal]; ACTIONS 13763 [sym_kExternal]; ACTIONS 5122 [sym_kMessage];
   ACTIONS 5125 [sym_kDeprecated]; ACTIONS 5113 [sym_kExperimental; sym_kPlatform;
   sym_kUnimplemented; sym_kCvar]; ACTIONS 5128 [sym_kExport]; ACTIONS 5113 [sym_kFar; sym_kNear;
   sym_kSafecall; sym_kAssembler; sym_kNostackframe; sym_kInterrupt; sym_kNoreturn; sym_kIocheck;
   sym_kLocal; sym_kHardfloat; sym_kSoftfloat; sym_kMs_abi_default; sym_kMs_abi_cdecl;
   sym_kSaveregisters; sym_kSysv_abi_default; sym_kSysv_abi_cdecl; sym_kVectorcall; sym_kVarargs;
   sym_kWinapi]; ACTIONS 5131 [sym_kAlias]; ACTIONS 5106 [sym_kBegin; sym_kClass; sym_kConst;
   sym_kConstructor; sym_kDestructor; sym_kEnd; sym_kExports; sym_kFunction];
   ACTIONS 1016 [sym_kInline]; ACTIONS 5106 [sym_kLabel; sym_kProcedure; sym_kResourcestring;
   sym_kThreadvar; sym_kType; sym_kUses; sym_kVar]].

(** State 2197. *)
Definition ts_parse_table_2197 : parse_row :=
  [STATE 2656 [sym__procAttribute]; STATE 14883 [sym_procAttribute];
   STATE 2338 [sym_procExternal; aux_sym_declVar_repeat2]; ACTIONS 13877 [anon_sym_LBRACK];
   ACTIONS 5134 [aux_sym_ppUsesBlock_token1]; ACTIONS 3 [sym__space];
   ACTIONS 5 [sym_ppDirective]; ACTIONS 3 [sym_comment]; ACTIONS 5134 [sym_identifier];
   ACTIONS 5141 [sym_kDefault; sym_kNodefault]; ACTIONS 5144 [sym_kDispId];
   ACTIONS 5134 [sym_kGeneric; sym_kOperator]; ACTIONS 5147 [sym_kPublic];
   ACTIONS 5141 [sym_kStatic; sym_kVirtual; sym_kAbstract; sym_kDynamic; sym_kOverride;
   sym_kOverload; sym_kReintroduce; sym_kStdcall; sym_kCdecl; sym_kCppdecl; sym_kPascal;
   sym_kRegister; sym_kMwpascal]; ACTIONS 13763 [sym_kExternal]; ACTIONS 5150 [sym_kMessage];
   ACTIONS 5153 [sym_kDeprecated]; ACTIONS 5141 [sym_kExperimental; sym_kPlatform;
   sym_kUnimplemented; sym_kCvar]; ACTIONS 5156 [sym_kExport]; ACTIONS 5141 [sym_kFar; sym_kNear;
   sym_kSafecall; sym_kAssembler; sym_kNostackframe; sym_kInterrupt; sym_kNoreturn; sym_kIocheck;
   sym_kLocal; sym_kHardfloat; sym_kSoftfloat; sym_kMs_abi_default; sym_kMs_abi_cdecl;
   sym_kSaveregisters; sym_kSysv_abi_default; sym_kSysv_abi_cdecl; sym_kVectorcall; sym_kVarargs;
   sym_kWinapi]; ACTIONS 5159 [sym_kAlias]; ACTIONS 5134 [sym_kBegin; sym_kClass; sym_kConst;
   sym_kConstructor; sym_kDestructor; sym_kEnd; sym_kExports; sym_kFunction];
   ACTIONS 1016 [sym_kInline]; ACTIONS 5134 [sym_kLabel; sym_kProcedure; sym_kResourcestring;
   sym_kThreadvar; sym_kType; sym_kUses; sym_kVar]].

(** State 2198. *)
Definition ts_parse_table_2198 : parse_row :=
  [STATE 2656 [sym__procAttribute]; STATE 14883 [sym_procAttribute];
   STATE 2338 [sym_procExternal; aux_sym_declVar_repeat2]; ACTIONS 13880 [anon_sym_LBRACK];
   ACTIONS 5162 [aux_sym_ppUsesBlock_token1]; ACTIONS 3 [sym__space];
   ACTIONS 5 [sym_ppDirective]; ACTIONS 3 [sym_comment]; ACTIONS 5162 [sym_identifier];
   ACTIONS 5169 [sym_kDefault; sym_kNodefault]; ACTIONS 5172 [sym_kDispId];
   ACTIONS 5162 [sym_kGeneric; sym_kOperator]; ACTIONS 5175 [sym_kPublic];
   ACTIONS 5169 [sym_kStatic; sym_kVirtual; sym_kAbstract; sym_kDynamic; sym_kOverride;
   sym_kOverload; sym_kReintroduce; sym_kStdcall; sym_kCdecl; sym_kCppdecl; sym_kPascal;
   sym_kRegister; sym_kMwpascal]; ACTIONS 13763 [sym_kExternal]; ACTIONS 5178 [sym_kMessage];
   ACTIONS 5181 [sym_kDeprecated]; ACTIONS 5169 [sym_kExperimental; sym_kPlatform;
   sym_kUnimplemented; sym_kCvar]; ACTIONS 5184 [sym_kExport]; ACTIONS 5169 [sym_kFar; sym_kNear;
   sym_kSafecall; sym_kAssembler; sym_kNostackframe; sym_kInterrupt; sym_kNoreturn; sym_kIocheck;
   sym_kLocal; sym_kHardfloat; sym_kSoftfloat; sym_kMs_abi_default; sym_kMs_abi_cdecl;
   sym_kSaveregisters; sym_kSysv_abi_default; sym_kSysv_abi_cdecl; sym_kVectorcall; sym_kVarargs;
   sym_kWinapi]; ACTIONS 5187 [sym_kAlias]; ACTIONS 5162 [sym_kBegin; sym_kClass; sym_kConst;
   sym_kConstructor; sym_kDestructor; sym_kEnd; sym_kExports; sym_kFunction];
   ACTIONS 1016 [sym_kInline]; ACTIONS 5162 [sym_kLabel; sym_kProcedure; sym_kResourcestring;
   sym_kThreadvar; sym_kType; sym_kUses; sym_kVar]].

(** State 2199. *)
Definition ts_parse_table_2199 : parse_row :=
  [STATE 2656 [sym__procAttribute]; STATE 14883 [sym_procAttribute];
   STATE 2338 [sym_procExternal; aux_sym_declVar_repeat2]; ACTIONS 13883 [anon_sym_LBRACK];
   ACTIONS 5249 [aux_sym_ppUsesBlock_token1]; ACTIONS 3 [sym__space];
   ACTIONS 5 [sym_ppDirective]; ACTIONS 3 [sym_comment]; ACTIONS 5249 [sym_identifier];
   ACTIONS 5256 [sym_kDefault; sym_kNodefault]; ACTIONS 5259 [sym_kDispId];
   ACTIONS 5249 [sym_kGeneric; sym_kOperator]; ACTIONS 5262 [sym_kPublic];
   ACTIONS 5256 [sym_kStatic; sym_kVirtual; sym_kAbstract; sym_kDynamic; sym_kOverride;
   sym_kOverload; sym_kReintroduce; sym_kStdcall; sym_kCdecl; sym_kCppdecl; sym_kPascal;
   sym_kRegister; sym_kMwpascal]; ACTIONS 13763 [sym_kExternal]; ACTIONS 5265 [sym_kMessage];
   ACTIONS 5268 [sym_kDeprecated]; ACTIONS 5256 [sym_kExperimental; sym_kPlatform;
   sym_kUnimplemented; sym_kCvar]; ACTIONS 5271 [sym_kExport]; ACTIONS 5256 [sym_kFar; sym_kNear;
   sym_kSafecall; sym_kAssembler; sym_kNostackframe; sym_kInterrupt; sym_kNoreturn; sym_kIocheck;
   sym_kLocal; sym_kHardfloat; sym_kSoftfloat; sym_kMs_abi_default; sym_kMs_abi_cdecl;
   sym_kSaveregisters; sym_kSysv_abi_default; sym_kSysv_abi_cdecl; sym_kVectorcall; sym_kVarargs;
   sym_kWinapi]; ACTIONS 5274 [sym_kAlias]; ACTIONS 5249 [sym_kBegin; sym_kClass; sym_kConst;
   sym_kConstructor; sym_kDestructor; sym_kEnd; sym_kExports; sym_kFunction];
   ACTIONS 1016 [sym_kInline]; ACTIONS 5249 [sym_kLabel; sym_kProcedure; sym_kResourcestring;
   sym_kThreadvar; sym_kType; sym_kUses; sym_kVar]].

(** State 2200. *)
Definition ts_parse_table_2200 : parse_row :=
  [STATE 2630 [sym__procAttribute]; STATE 14946 [sym_procAttribute];
   STATE 2340 [sym_procExternal; aux_sym_declVar_repeat2]; ACTIONS 13886 [anon_sym_LBRACK];
   ACTIONS 4674 [aux_sym_ppUsesBlock_token1]; ACTIONS 3 [sym__space];
   ACTIONS 5 [sym_ppDirective]; ACTIONS 3 [sym_comment]; ACTIONS 4674 [sym_identifier];
   ACTIONS 4681 [sym_kDefault; sym_kNodefault]; ACTIONS 4684 [sym_kDispId];
   ACTIONS 4674 [sym_kGeneric; sym_kOperator]; ACTIONS 4687 [sym_kPublic];
   ACTIONS 4681 [sym_kStatic; sym_kVirtual; sym_kAbstract; sym_kDynamic; sym_kOverride;
   sym_kOverload; sym_kReintroduce; sym_kStdcall; sym_kCdecl; sym_kCppdecl; sym_kPascal;
   sym_kRegister; sym_kMwpascal]; ACTIONS 13801 [sym_kExternal]; ACTIONS 4690 [sym_kMessage];
   ACTIONS 4693 [sym_kDeprecated]; ACTIONS 4681 [sym_kExperimental; sym_kPlatform;
   sym_kUnimplemented; sym_kCvar]; ACTIONS 4696 [sym_kExport]; ACTIONS 4681 [sym_kFar; sym_kNear;
   sym_kSafecall; sym_kAssembler; sym_kNostackframe; sym_kInterrupt; sym_kNoreturn; sym_kIocheck;
   sym_kLocal; sym_kHardfloat; sym_kSoftfloat; sym_kMs_abi_default; sym_kMs_abi_cdecl;
   sym_kSaveregisters; sym_kSysv_abi_default; sym_kSysv_abi_cdecl; sym_kVectorcall; sym_kVarargs;
   sym_kWinapi]; ACTIONS 4699 [sym_kAlias]; ACTIONS 4674 [sym_kAsm; sym_kBegin; sym_kClass;
   sym_kConst; sym_kConstructor; sym_kDestructor; sym_kExports; sym_kFunction];
   ACTIONS 1016 [sym_kInline]; ACTIONS 4674 [sym_kLabel; sym_kProcedure; sym_kResourcestring;
   sym_kThreadvar; sym_kType; sym_kUses; sym_kVar]].

(** State 2201. *)
Definition ts_parse_table_2201 : parse_row :=
  [STATE 2656 [sym__procAttribute]; STATE 14883 [sym_procAttribute];
   STATE 2338 [sym_procExternal; aux_sym_declVar_repeat2]; ACTIONS 13889 [anon_sym_LBRACK];
   ACTIONS 5722 [aux_sym_ppUsesBlock_token1]; ACTIONS 3 [sym__space];
   ACTIONS 5 [sym_ppDirective]; ACTIONS 3 [sym_comment]; ACTIONS 5722 [sym_identifier];
   ACTIONS 5729 [sym_kDefault; sym_kNodefault]; ACTIONS 5732 [sym_kDispId];
   ACTIONS 5722 [sym_kGeneric; sym_kOperator]; ACTIONS 5735 [sym_kPublic];
   ACTIONS 5729 [sym_kStatic; sym_kVirtual; sym_kAbstract; sym_kDynamic; sym_kOverride;
   sym_kOverload; sym_kReintroduce; sym_kStdcall; sym_kCdecl; sym_kCppdecl; sym_kPascal;
   sym_kRegister; sym_kMwpascal]; ACTIONS 13763 [sym_kExternal]; ACTIONS 5738 [sym_kMessage];
   ACTIONS 5741 [sym_kDeprecated]; ACTIONS 5729 [sym_kExperimental; sym_kPlatform;
   sym_kUnimplemented; sym_kCvar]; ACTIONS 5744 [sym_kExport]; ACTIONS 5729 [sym_kFar; sym_kNear;
   sym_kSafecall; sym_kAssembler; sym_kNostackframe; sym_kInterrupt; sym_kNoreturn; sym_kIocheck;
   sym_kLocal; sym_kHardfloat; sym_kSoftfloat; sym_kMs_abi_default; sym_kMs_abi_cdecl;
   sym_kSaveregisters; sym_kSysv_abi_default; sym_kSysv_abi_cdecl; sym_kVectorcall; sym_kVarargs;
   sym_kWinapi]; ACTIONS 5747 [sym_kAlias]; ACTIONS 5722 [sym_kBegin; sym_kClass; sym_kConst;
   sym_kConstructor; sym_kDestructor; sym_kEnd; sym_kExports; sym_kFunction];
   ACTIONS 1016 [sym_kInline]; ACTIONS 5722 [sym_kLabel; sym_kProcedure; sym_kResourcestring;
   sym_kThreadvar; sym_kType; sym_kUses; sym_kVar]].

(** State 2202. *)
Definition ts_parse_table_2202 : parse_row :=
  [STATE 2656 [sym__procAttribute]; STATE 14883 [sym_procAttribute];
   STATE 2338 [sym_procExternal; aux_sym_declVar_repeat2]; ACTIONS 13892 [anon_sym_LBRACK];
   ACTIONS 7356 [aux_sym_ppUsesBlock_token1]; ACTIONS 3 [sym__space];
   ACTIONS 5 [sym_ppDirective]; ACTIONS 3 [sym_comment]; ACTIONS 7356 [sym_identifier];
   ACTIONS 7363 [sym_kDefault; sym_kNodefault]; ACTIONS 7366 [sym_kDispId];
   ACTIONS 7356 [sym_kGeneric; sym_kOperator]; ACTIONS 7369 [sym_kPublic];
   ACTIONS 7363 [sym_kStatic; sym_kVirtual; sym_kAbstract; sym_kDynamic; sym_kOverride;
   sym_kOverload; sym_kReintroduce; sym_kStdcall; sym_kCdecl; sym_kCppdecl; sym_kPascal;
   sym_kRegister; sym_kMwpascal]; ACTIONS 13763 [sym_kExternal]; ACTIONS 7372 [sym_kMessage];
   ACTIONS 7375 [sym_kDeprecated]; ACTIONS 7363 [sym_kExperimental; sym_kPlatform;
   sym_kUnimplemented; sym_kCvar]; ACTIONS 7378 [sym_kExport]; ACTIONS 7363 [sym_kFar; sym_kNear;
   sym_kSafecall; sym_kAssembler; sym_kNostackframe; sym_kInterrupt; sym_kNoreturn; sym_kIocheck;
   sym_kLocal; sym_kHardfloat; sym_kSoftfloat; sym_kMs_abi_default; sym_kMs_abi_cdecl;
   sym_kSaveregisters; sym_kSysv_abi_default; sym_kSysv_abi_cdecl; sym_kVectorcall; sym_kVarargs;
   sym_kWinapi]; ACTIONS 7381 [sym_kAlias]; ACTIONS 7356 [sym_kBegin; sym_kClass; sym_kConst;
   sym_kConstructor; sym_kDestructor; sym_kEnd; sym_kExports; sym_kFunction];
   ACTIONS 1016 [sym_kInline]; ACTIONS 7356 [sym_kLabel; sym_kProcedure; sym_kResourcestring;
   sym_kThreadvar; sym_kType; sym_kUses; sym_kVar]].

(** State 2203. *)
Definition ts_parse_table_2203 : parse_row :=
  [STATE 2630 [sym__procAttribute]; STATE 14946 [sym_procAttribute];
   STATE 2340 [sym_procExternal; aux_sym_declVar_repeat2]; ACTIONS 13895 [anon_sym_LBRACK];
   ACTIONS 4733 [aux_sym_ppUsesBlock_token1]; ACTIONS 3 [sym__space];
   ACTIONS 5 [sym_ppDirective]; ACTIONS 3 [sym_comment]; ACTIONS 4733 [sym_identifier];
   ACTIONS 4740 [sym_kDefault; sym_kNodefault]; ACTIONS 4743 [sym_kDispId];
   ACTIONS 4733 [sym_kGeneric; sym_kOperator]; ACTIONS 4746 [sym_kPublic];
   ACTIONS 4740 [sym_kStatic; sym_kVirtual; sym_kAbstract; sym_kDynamic; sym_kOverride;
   sym_kOverload; sym_kReintroduce; sym_kStdcall; sym_kCdecl; sym_kCppdecl; sym_kPascal;
   sym_kRegister; sym_kMwpascal]; ACTIONS 13801 [sym_kExternal]; ACTIONS 4749 [sym_kMessage];
   ACTIONS 4752 [sym_kDeprecated]; ACTIONS 4740 [sym_kExperimental; sym_kPlatform;
   sym_kUnimplemented; sym_kCvar]; ACTIONS 4755 [sym_kExport]; ACTIONS 4740 [sym_kFar; sym_kNear;
   sym_kSafecall; sym_kAssembler; sym_kNostackframe; sym_kInterrupt; sym_kNoreturn; sym_kIocheck;
   sym_kLocal; sym_kHardfloat; sym_kSoftfloat; sym_kMs_abi_default; sym_kMs_abi_cdecl;
   sym_kSaveregisters; sym_kSysv_abi_default; sym_kSysv_abi_cdecl; sym_kVectorcall; sym_kVarargs;
   sym_kWinapi]; ACTIONS 4758 [sym_kAlias]; ACTIONS 4733 [sym_kAsm; sym_kBegin; sym_kClass;
   sym_kConst; sym_kConstructor; sym_kDestructor; sym_kExports; sym_kFunction];
   ACTIONS 1016 [sym_kInline]; ACTIONS 4733 [sym_kLabel; sym_kProcedure; sym_kResourcestring;
   sym_kThreadvar; sym_kType; sym_kUses; sym_kVar]].

(** State 2204. *)
Definition ts_parse_table_2204 : parse_row :=
  [STATE 2630 [sym__procAttribute]; STATE 14946 [sym_procAttribute];
   STATE 2231 [sym_procExternal; aux_sym_declVar_repeat2]; ACTIONS 13898 [anon_sym_LBRACK];
   ACTIONS 4851 [aux_sym_ppUsesBlock_token1]; ACTIONS 3 [sym__space];
   ACTIONS 5 [sym_ppDirective]; ACTIONS 3 [sym_comment]; ACTIONS 4851 [sym_identifier];
   ACTIONS 4858 [sym_kDefault; sym_kNodefault]; ACTIONS 4861 [sym_kDispId];
   ACTIONS 4851 [sym_kGeneric; sym_kOperator]; ACTIONS 4864 [sym_kPublic];
   ACTIONS 4858 [sym_kStatic; sym_kVirtual; sym_kAbstract; sym_kDynamic; sym_kOverride;
   sym_kOverload; sym_kReintroduce; sym_kStdcall; sym_kCdecl; sym_kCppdecl; sym_kPascal;
   sym_kRegister; sym_kMwpascal]; ACTIONS 13801 [sym_kExternal]; ACTIONS 4867 [sym_kMessage];
   ACTIONS 4870 [sym_kDeprecated]; ACTIONS 4858 [sym_kExperimental; sym_kPlatform;
   sym_kUnimplemented; sym_kCvar]; ACTIONS 4873 [sym_kExport]; ACTIONS 4858 [sym_kFar; sym_kNear;
   sym_kSafecall; sym_kAssembler; sym_kNostackframe; sym_kInterrupt; sym_kNoreturn; sym_kIocheck;
   sym_kLocal; sym_kHardfloat; sym_kSoftfloat; sym_kMs_abi_default; sym_kMs_abi_cdecl;
   sym_kSaveregisters; sym_kSysv_abi_default; sym_kSysv_abi_cdecl; sym_kVectorcall; sym_kVarargs;
   sym_kWinapi]; ACTIONS 4876 [sym_kAlias]; ACTIONS 4851 [sym_kAsm; sym_kBegin; sym_kClass;
   sym_kConst; sym_kConstructor; sym_kDestructor; sym_kExports; sym_kFunction];
   ACTIONS 1016 [sym_kInline]; ACTIONS 4851 [sym_kLabel; sym_kProcedure; sym_kResourcestring;
   sym_kThreadvar; sym_kType; sym_kUses; sym_kVar]].

(** State 2205. *)
Definition ts_parse_table_2205 : parse_row :=
  [STATE 2630 [sym__procAttribute]; STATE 14946 [sym_procAttribute];
   STATE 2340 [sym_procExternal; aux_sym_declVar_repeat2]; ACTIONS 13901 [anon_sym_LBRACK];
   ACTIONS 4907 [aux_sym_ppUsesBlock_token1]; ACTIONS 3 [sym__space];
   ACTIONS 5 [sym_ppDirective]; ACTIONS 3 [sym_comment]; ACTIONS 4907 [sym_identifier];
   ACTIONS 4914 [sym_kDefault; sym_kNodefault]; ACTIONS 4917 [sym_kDispId];
   ACTIONS 4907 [sym_kGeneric; sym_kOperator]; ACTIONS 4920 [sym_kPublic];
   ACTIONS 4914 [sym_kStatic; sym_kVirtual; sym_kAbstract; sym_kDynamic; sym_kOverride;
   sym_kOverload; sym_kReintroduce; sym_kStdcall; sym_kCdecl; sym_kCppdecl; sym_kPascal;
   sym_kRegister; sym_kMwpascal]; ACTIONS 13801 [sym_kExternal]; ACTIONS 4923 [sym_kMessage];
   ACTIONS 4926 [sym_kDeprecated]; ACTIONS 4914 [sym_kExperimental; sym_kPlatform;
   sym_kUnimplemented; sym_kCvar]; ACTIONS 4929 [sym_kExport]; ACTIONS 4914 [sym_kFar; sym_kNear;
   sym_kSafecall; sym_kAssembler; sym_kNostackframe; sym_kInterrupt; sym_kNoreturn; sym_kIocheck;
   sym_kLocal; sym_kHardfloat; sym_kSoftfloat; sym_kMs_abi_default; sym_kMs_abi_cdecl;
   sym_kSaveregisters; sym_kSysv_abi_default; sym_kSysv_abi_cdecl; sym_kVectorcall; sym_kVarargs;
   sym_kWinapi]; ACTIONS 4932 [sym_kAlias]; ACTIONS 4907 [sym_kAsm; sym_kBegin; sym_kClass;
   sym_kConst; sym_kConstructor; sym_kDestructor; sym_kExports; sym_kFunction];
   ACTIONS 1016 [sym_kInline]; ACTIONS 4907 [sym_kLabel; sym_kProcedure; sym_kResourcestring;
   sym_kThreadvar; sym_kType; sym_kUses; sym_kVar]].

(** State 2206. *)
Definition ts_parse_table_2206 : parse_row :=
  [STATE 2630 [sym__procAttribute]; STATE 14946 [sym_procAttribute];
   STATE 2232 [sym_procExternal; aux_sym_declVar_repeat2]; ACTIONS 13904 [anon_sym_LBRACK];
   ACTIONS 5106 [aux_sym_ppUsesBlock_token1]; ACTIONS 3 [sym__space];
   ACTIONS 5 [sym_ppDirective]; ACTIONS 3 [sym_comment]; ACTIONS 5106 [sym_identifier];
   ACTIONS 5113 [sym_kDefault; sym_kNodefault]; ACTIONS 5116 [sym_kDispId];
   ACTIONS 5106 [sym_kGeneric; sym_kOperator]; ACTIONS 5119 [sym_kPublic];
   ACTIONS 5113 [sym_kStatic; sym_kVirtual; sym_kAbstract; sym_kDynamic; sym_kOverride;
   sym_kOverload; sym_kReintroduce; sym_kStdcall; sym_kCdecl; sym_kCppdecl; sym_kPascal;
   sym_kRegister; sym_kMwpascal]; ACTIONS 13801 [sym_kExternal]; ACTIONS 5122 [sym_kMessage];
   ACTIONS 5125 [sym_kDeprecated]; ACTIONS 5113 [sym_kExperimental; sym_kPlatform;
   sym_kUnimplemented; sym_kCvar]; ACTIONS 5128 [sym_kExport]; ACTIONS 5113 [sym_kFar; sym_kNear;
   sym_kSafecall; sym_kAssembler; sym_kNostackframe; sym_kInterrupt; sym_kNoreturn; sym_kIocheck;
   sym_kLocal; sym_kHardfloat; sym_kSoftfloat; sym_kMs_abi_default; sym_kMs_abi_cdecl;
   sym_kSaveregisters; sym_kSysv_abi_default; sym_kSysv_abi_cdecl; sym_kVectorcall; sym_kVarargs;
   sym_kWinapi]; ACTIONS 5131 [sym_kAlias]; ACTIONS 5106 [sym_kAsm; sym_kBegin; sym_kClass;
   sym_kConst; sym_kConstructor; sym_kDestructor; sym_kExports; sym_kFunction];
   ACTIONS 1016 [sym_kInline]; ACTIONS 5106 [sym_kLabel; sym_kProcedure; sym_kResourcestring;
   sym_kThreadvar; sym_kType; sym_kUses; sym_kVar]].

(** State 2207. *)
Definition ts_parse_table_2207 : parse_row :=
  [STATE 2630 [sym__procAttribute]; STATE 14946 [sym_procAttribute];
   STATE 2340 [sym_procExternal; aux_sym_declVar_repeat2]; ACTIONS 13907 [anon_sym_LBRACK];
   ACTIONS 5134 [aux_sym_ppUsesBlock_token1]; ACTIONS 3 [sym__space];
   ACTIONS 5 [sym_ppDirective]; ACTIONS 3 [sym_comment]; ACTIONS 5134 [sym_identifier];
   ACTIONS 5141 [sym_kDefault; sym_kNodefault]; ACTIONS 5144 [sym_kDispId];
   ACTIONS 5134 [sym_kGeneric; sym_kOperator]; ACTIONS 5147 [sym_kPublic];
   ACTIONS 5141 [sym_kStatic; sym_kVirtual; sym_kAbstract; sym_kDynamic; sym_kOverride;
   sym_kOverload; sym_kReintroduce; sym_kStdcall; sym_kCdecl; sym_kCppdecl; sym_kPascal;
   sym_kRegister; sym_kMwpascal]; ACTIONS 13801 [sym_kExternal]; ACTIONS 5150 [sym_kMessage];
   ACTIONS 5153 [sym_kDeprecated]; ACTIONS 5141 [sym_kExperimental; sym_kPlatform;
   sym_kUnimplemented; sym_kCvar]; ACTIONS 5156 [sym_kExport]; ACTIONS 5141 [sym_kFar; sym_kNear;
   sym_kSafecall; sym_kAssembler; sym_kNostackframe; sym_kInterrupt; sym_kNoreturn; sym_kIocheck;
   sym_kLocal; sym_kHardfloat; sym_kSoftfloat; sym_kMs_abi_default; sym_kMs_abi_cdecl;
   sym_kSaveregisters; sym_kSysv_abi_default; sym_kSysv_abi_cdecl; sym_kVectorcall; sym_kVarargs;
   sym_kWinapi]; ACTIONS 5159 [sym_kAlias]; ACTIONS 5134 [sym_kAsm; sym_kBegin; sym_kClass;
   sym_kConst; sym_kConstructor; sym_kDestructor; sym_kExports; sym_kFunction];
   ACTIONS 1016 [sym_kInline]; ACTIONS 5134 [sym_kLabel; sym_kProcedure; sym_kResourcestring;
   sym_kThreadvar; sym_kType; sym_kUses; sym_kVar]].

(** State 2208. *)
Definition ts_parse_table_2208 : parse_row :=
  [STATE 2630 [sym__procAttribute]; STATE 14946 [sym_procAttribute];
   STATE 2340 [sym_procExternal; aux_sym_declVar_repeat2]; ACTIONS 13910 [anon_sym_LBRACK];
   ACTIONS 5162 [aux_sym_ppUsesBlock_token1]; ACTIONS 3 [sym__space];
   ACTIONS 5 [sym_ppDirective]; ACTIONS 3 [sym_comment]; ACTIONS 5162 [sym_identifier];
   ACTIONS 5169 [sym_kDefault; sym_kNodefault]; ACTIONS 5172 [sym_kDispId];
   ACTIONS 5162 [sym_kGeneric; sym_kOperator]; ACTIONS 5175 [sym_kPublic];
   ACTIONS 5169 [sym_kStatic; sym_kVirtual; sym_kAbstract; sym_kDynamic; sym_kOverride;
   sym_kOverload; sym_kReintroduce; sym_kStdcall; sym_kCdecl; sym_kCppdecl; sym_kPascal;
   sym_kRegister; sym_kMwpascal]; ACTIONS 13801 [sym_kExternal]; ACTIONS 5178 [sym_kMessage];
   ACTIONS 5181 [sym_kDeprecated]; ACTIONS 5169 [sym_kExperimental; sym_kPlatform;
   sym_kUnimplemented; sym_kCvar]; ACTIONS 5184 [sym_kExport]; ACTIONS 5169 [sym_kFar; sym_kNear;
   sym_kSafecall; sym_kAssembler; sym_kNostackframe; sym_kInterrupt; sym_kNoreturn; sym_kIocheck;
   sym_kLocal; sym_kHardfloat; sym_kSoftfloat; sym_kMs_abi_default; sym_kMs_abi_cdecl;
   sym_kSaveregisters; sym_kSysv_abi_default; sym_kSysv_abi_cdecl; sym_kVectorcall; sym_kVarargs;
   sym_kWinapi]; ACTIONS 5187 [sym_kAlias]; ACTIONS 5162 [sym_kAsm; sym_kBegin; sym_kClass;
   sym_kConst; sym_kConstructor; sym_kDestructor; sym_kExports; sym_kFunction];
   ACTIONS 1016 [sym_kInline]; ACTIONS 5162 [sym_kLabel; sym_kProcedure; sym_kResourcestring;
   sym_kThreadvar; sym_kType; sym_kUses; sym_kVar]].

(** State 2209. *)
Definition ts_parse_table_2209 : parse_row :=
  [STATE 2630 [sym__procAttribute]; STATE 14946 [sym_procAttribute];
   STATE 2340 [sym_procExternal; aux_sym_declVar_repeat2]; ACTIONS 13913 [anon_sym_LBRACK];
   ACTIONS 5249 [aux_sym_ppUsesBlock_token1]; ACTIONS 3 [sym__space];
   ACTIONS 5 [sym_ppDirective]; ACTIONS 3 [sym_comment]; ACTIONS 5249 [sym_identifier];
   ACTIONS 5256 [sym_kDefault; sym_kNodefault]; ACTIONS 5259 [sym_kDispId];
   ACTIONS 5249 [sym_kGeneric; sym_kOperator]; ACTIONS 5262 [sym_kPublic];
   ACTIONS 5256 [sym_kStatic; sym_kVirtual; sym_kAbstract; sym_kDynamic; sym_kOverride;
   sym_kOverload; sym_kReintroduce; sym_kStdcall; sym_kCdecl; sym_kCppdecl; sym_kPascal;
   sym_kRegister; sym_kMwpascal]; ACTIONS 13801 [sym_kExternal]; ACTIONS 5265 [sym_kMessage];
   ACTIONS 5268 [sym_kDeprecated]; ACTIONS 5256 [sym_kExperimental; sym_kPlatform;
   sym_kUnimplemented; sym_kCvar]; ACTIONS 5271 [sym_kExport]; ACTIONS 5256 [sym_kFar; sym_kNear;
   sym_kSafecall; sym_kAssembler; sym_kNostackframe; sym_kInterrupt; sym_kNoreturn; sym_kIocheck;
   sym_kLocal; sym_kHardfloat; sym_kSoftfloat; sym_kMs_abi_default; sym_kMs_abi_cdecl;
   sym_kSaveregisters; sym_kSysv_abi_default; sym_kSysv_abi_cdecl; sym_kVectorcall; sym_kVarargs;
   sym_kWinapi]; ACTIONS 5274 [sym_kAlias]; ACTIONS 5249 [sym_kAsm; sym_kBegin; sym_kClass;
   sym_kConst; sym_kConstructor; sym_kDestructor; sym_kExports; sym_kFunction];
   ACTIONS 1016 [sym_kInline]; ACTIONS 5249 [sym_kLabel; sym_kProcedure; sym_kResourcestring;
   sym_kThreadvar; sym_kType; sym_kUses; sym_kVar]].

(** State 2210. *)
Definition ts_parse_table_2210 : parse_row :=
  [ACTIONS 10576 [anon_sym_LBRACK; aux_sym_ppUsesBlock_token1]; ACTIONS 3 [sym__space];
   ACTIONS 5 [sym_ppDirective]; ACTIONS 3 [sym_comment]; ACTIONS 10576 [sym_identifier;
   sym_kDefault; sym_kNodefault; sym_kDispId; sym_kGeneric; sym_kOperator; sym_kPublic;
   sym_kStatic; sym_kVirtual; sym_kAbstract; sym_kDynamic; sym_kOverride; sym_kOverload;
   sym_kReintroduce; sym_kStdcall; sym_kCdecl; sym_kCppdecl; sym_kPascal; sym_kRegister;
   sym_kMwpascal; sym_kExternal; sym_kMessage; sym_kDeprecated; sym_kExperimental; sym_kPlatform;
   sym_kUnimplemented; sym_kCvar; sym_kExport; sym_kFar; sym_kNear; sym_kSafecall;
   sym_kAssembler; sym_kNostackframe; sym_kInterrupt; sym_kNoreturn; sym_kIocheck; sym_kLocal;
   sym_kHardfloat; sym_kSoftfloat; sym_kMs_abi_default; sym_kMs_abi_cdecl; sym_kSaveregisters;
   sym_kSysv_abi_default; sym_kSysv_abi_cdecl; sym_kVectorcall; sym_kVarargs; sym_kWinapi;
   sym_kAlias; sym_kClass; sym_kConst; sym_kConstructor; sym_kDestructor; sym_kEnd; sym_kExports;
   sym_kFinalization; sym_kFunction; sym_kImplementation; sym_kInitialization; sym_kInline;
   sym_kInterface; sym_kLabel; sym_kProcedure; sym_kProperty; sym_kResourcestring;
   sym_kThreadvar; sym_kType; sym_kUses; sym_kVar]].

(** State 2211. *)
Definition ts_parse_table_2211 : parse_row :=
  [ACTIONS 10590 [anon_sym_LBRACK; aux_sym_ppUsesBlock_token1]; ACTIONS 3 [sym__space];
   ACTIONS 5 [sym_ppDirective]; ACTIONS 3 [sym_comment]; ACTIONS 10590 [sym_identifier;
   sym_kDefault; sym_kNodefault; sym_kDispId; sym_kGeneric; sym_kOperator; sym_kPublic;
   sym_kStatic; sym_kVirtual; sym_kAbstract; sym_kDynamic; sym_kOverride; sym_kOverload;
   sym_kReintroduce; sym_kStdcall; sym_kCdecl; sym_kCppdecl; sym_kPascal; sym_kRegister;
   sym_kMwpascal; sym_kExternal; sym_kMessage; sym_kDeprecated; sym_kExperimental; sym_kPlatform;
   sym_kUnimplemented; sym_kCvar; sym_kExport; sym_kFar; sym_kNear; sym_kSafecall;
   sym_kAssembler; sym_kNostackframe; sym_kInterrupt; sym_kNoreturn; sym_kIocheck; sym_kLocal;
   sym_kHardfloat; sym_kSoftfloat; sym_kMs_abi_default; sym_kMs_abi_cdecl; sym_kSaveregisters;
   sym_kSysv_abi_default; sym_kSysv_abi_cdecl; sym_kVectorcall; sym_kVarargs; sym_kWinapi;
   sym_kAlias; sym_kClass; sym_kConst; sym_kConstructor; sym_kDestructor; sym_kEnd; sym_kExports;
   sym_kFinalization; sym_kFunction; sym_kImplementation; sym_kInitialization; sym_kInline;
   sym_kInterface; sym_kLabel; sym_kProcedure; sym_kProperty; sym_kResourcestring;
   sym_kThreadvar; sym_kType; sym_kUses; sym_kVar]].

(** State 2212. *)
Definition ts_parse_table_2212 : parse_row :=
  [ACTIONS 10594 [anon_sym_LBRACK; aux_sym_ppUsesBlock_token1]; ACTIONS 3 [sym__space];
   ACTIONS 5 [sym_ppDirective]; ACTIONS 3 [sym_comment]; ACTIONS 10594 [sym_identifier;
   sym_kDefault; sym_kNodefault; sym_kDispId; sym_kGeneric; sym_kOperator; sym_kPublic;
   sym_kStatic; sym_kVirtual; sym_kAbstract; sym_kDynamic; sym_kOverride; sym_kOverload;
   sym_kReintroduce; sym_kStdcall; sym_kCdecl; sym_kCppdecl; sym_kPascal; sym_kRegister;
   sym_kMwpascal; sym_kExternal; sym_kMessage; sym_kDeprecated; sym_kExperimental; sym_kPlatform;
   sym_kUnimplemented; sym_kCvar; sym_kExport; sym_kFar; sym_kNear; sym_kSafecall;
   sym_kAssembler; sym_kNostackframe; sym_kInterrupt; sym_kNoreturn; sym_kIocheck; sym_kLocal;
   sym_kHardfloat; sym_kSoftfloat; sym_kMs_abi_default; sym_kMs_abi_cdecl; sym_kSaveregisters;
   sym_kSysv_abi_default; sym_kSysv_abi_cdecl; sym_kVectorcall; sym_kVarargs; sym_kWinapi;
   sym_kAlias; sym_kClass; sym_kConst; sym_kConstructor; sym_kDestructor; sym_kEnd; sym_kExports;
   sym_kFinalization; sym_kFunction; sym_kImplementation; sym_kInitialization; sym_kInline;
   sym_kInterface; sym_kLabel; sym_kProcedure; sym_kProperty; sym_kResourcestring;
   sym_kThreadvar; sym_kType; sym_kUses; sym_kVar]].

(** State 2213. *)
Definition ts_parse_table_2213 : parse_row :=
  [ACTIONS 9842 [anon_sym_LBRACK; aux_sym_ppUsesBlock_token1]; ACTIONS 3 [sym__space];
   ACTIONS 5 [sym_ppDirective]; ACTIONS 3 [sym_comment]; ACTIONS 9842 [sym_kDefault;
   sym_kNodefault; sym_kDispId; sym_kGeneric; sym_kOperator; sym_kPublic; sym_kForward;
   sym_kStatic; sym_kVirtual; sym_kAbstract; sym_kDynamic; sym_kOverride; sym_kOverload;
   sym_kReintroduce; sym_kStdcall; sym_kCdecl; sym_kCppdecl; sym_kPascal; sym_kRegister;
   sym_kMwpascal; sym_kExternal; sym_kMessage; sym_kDeprecated; sym_kExperimental; sym_kPlatform;
   sym_kUnimplemented; sym_kCvar; sym_kExport; sym_kFar; sym_kNear; sym_kSafecall;
   sym_kAssembler; sym_kNostackframe; sym_kInterrupt; sym_kNoreturn; sym_kIocheck; sym_kLocal;
   sym_kHardfloat; sym_kSoftfloat; sym_kMs_abi_default; sym_kMs_abi_cdecl; sym_kSaveregisters;
   sym_kSysv_abi_default; sym_kSysv_abi_cdecl; sym_kVectorcall; sym_kVarargs; sym_kWinapi;
   sym_kAlias; sym_kClass; sym_kConst; sym_kConstructor; sym_kDestructor; sym_kEnd; sym_kExports;
   sym_kFinalization; sym_kFunction; sym_kImplementation; sym_kInitialization; sym_kInline;
   sym_kInterface; sym_kLabel; sym_kProcedure; sym_kProperty; sym_kResourcestring;
   sym_kThreadvar; sym_kType; sym_kUses; sym_kVar]].

(** State 2214. *)
Definition ts_parse_table_2214 : parse_row :=
  [ACTIONS 9946 [anon_sym_LBRACK; aux_sym_ppUsesBlock_token1]; ACTIONS 3 [sym__space];
   ACTIONS 5 [sym_ppDirective]; ACTIONS 3 [sym_comment]; ACTIONS 9946 [sym_kDefault;
   sym_kNodefault; sym_kDispId; sym_kGeneric; sym_kOperator; sym_kPublic; sym_kForward;
   sym_kStatic; sym_kVirtual; sym_kAbstract; sym_kDynamic; sym_kOverride; sym_kOverload;
   sym_kReintroduce; sym_kStdcall; sym_kCdecl; sym_kCppdecl; sym_kPascal; sym_kRegister;
   sym_kMwpascal; sym_kExternal; sym_kMessage; sym_kDeprecated; sym_kExperimental; sym_kPlatform;
   sym_kUnimplemented; sym_kCvar; sym_kExport; sym_kFar; sym_kNear; sym_kSafecall;
   sym_kAssembler; sym_kNostackframe; sym_kInterrupt; sym_kNoreturn; sym_kIocheck; sym_kLocal;
   sym_kHardfloat; sym_kSoftfloat; sym_kMs_abi_default; sym_kMs_abi_cdecl; sym_kSaveregisters;
   sym_kSysv_abi_default; sym_kSysv_abi_cdecl; sym_kVectorcall; sym_kVarargs; sym_kWinapi;
   sym_kAlias; sym_kClass; sym_kConst; sym_kConstructor; sym_kDestructor; sym_kEnd; sym_kExports;
   sym_kFinalization; sym_kFunction; sym_kImplementation; sym_kInitialization; sym_kInline;
   sym_kInterface; sym_kLabel; sym_kProcedure; sym_kProperty; sym_kResourcestring;
   sym_kThreadvar; sym_kType; sym_kUses; sym_kVar]].

(** State 2215. *)
Definition ts_parse_table_2215 : parse_row :=
  [STATE 2633 [sym__procAttribute]; STATE 14888 [sym_procAttribute];
   STATE 2221 [sym_procExternal; aux_sym_declVar_repeat2]; ACTIONS 4029 [ts_builtin_sym_end];
   ACTIONS 13916 [anon_sym_LBRACK]; ACTIONS 4029 [aux_sym_ppUsesBlock_token1];
   ACTIONS 3 [sym__space]; ACTIONS 5 [sym_ppDirective]; ACTIONS 3 [sym_comment];
   ACTIONS 4029 [sym_identifier]; ACTIONS 4036 [sym_kDefault; sym_kNodefault];
   ACTIONS 4039 [sym_kDispId]; ACTIONS 4029 [sym_kGeneric; sym_kOperator];
   ACTIONS 4042 [sym_kPublic]; ACTIONS 4036 [sym_kStatic; sym_kVirtual; sym_kAbstract;
   sym_kDynamic; sym_kOverride; sym_kOverload; sym_kReintroduce; sym_kStdcall; sym_kCdecl;
   sym_kCppdecl; sym_kPascal; sym_kRegister; sym_kMwpascal]; ACTIONS 13860 [sym_kExternal];
   ACTIONS 4045 [sym_kMessage]; ACTIONS 4048 [sym_kDeprecated]; ACTIONS 4036 [sym_kExperimental;
   sym_kPlatform; sym_kUnimplemented; sym_kCvar]; ACTIONS 4051 [sym_kExport];
   ACTIONS 4036 [sym_kFar; sym_kNear; sym_kSafecall; sym_kAssembler; sym_kNostackframe;
   sym_kInterrupt; sym_kNoreturn; sym_kIocheck; sym_kLocal; sym_kHardfloat; sym_kSoftfloat;
   sym_kMs_abi_default; sym_kMs_abi_cdecl; sym_kSaveregisters; sym_kSysv_abi_default;
   sym_kSysv_abi_cdecl; sym_kVectorcall; sym_kVarargs; sym_kWinapi]; ACTIONS 4054 [sym_kAlias];
   ACTIONS 4029 [sym_kBegin; sym_kClass; sym_kConst; sym_kConstructor; sym_kDestructor;
   sym_kExports; sym_kFunction]; ACTIONS 1016 [sym_kInline]; ACTIONS 4029 [sym_kLabel;
   sym_kProcedure; sym_kResourcestring; sym_kThreadvar; sym_kType; sym_kUses; sym_kVar]].

(** State 2216. *)
Definition ts_parse_table_2216 : parse_row :=
  [STATE 2633 [sym__procAttribute]; STATE 14888 [sym_procAttribute];
   STATE 2223 [sym_procExternal; aux_sym_declVar_repeat2]; ACTIONS 4085 [ts_builtin_sym_end];
   ACTIONS 13919 [anon_sym_LBRACK]; ACTIONS 4085 [aux_sym_ppUsesBlock_token1];
   ACTIONS 3 [sym__space]; ACTIONS 5 [sym_ppDirective]; ACTIONS 3 [sym_comment];
   ACTIONS 4085 [sym_identifier]; ACTIONS 4092 [sym_kDefault; sym_kNodefault];
   ACTIONS 4095 [sym_kDispId]; ACTIONS 4085 [sym_kGeneric; sym_kOperator];
   ACTIONS 4098 [sym_kPublic]; ACTIONS 4092 [sym_kStatic; sym_kVirtual; sym_kAbstract;
   sym_kDynamic; sym_kOverride; sym_kOverload; sym_kReintroduce; sym_kStdcall; sym_kCdecl;
   sym_kCppdecl; sym_kPascal; sym_kRegister; sym_kMwpascal]; ACTIONS 13860 [sym_kExternal];
   ACTIONS 4101 [sym_kMessage]; ACTIONS 4104 [sym_kDeprecated]; ACTIONS 4092 [sym_kExperimental;
   sym_kPlatform; sym_kUnimplemented; sym_kCvar]; ACTIONS 4107 [sym_kExport];
   ACTIONS 4092 [sym_kFar; sym_kNear; sym_kSafecall; sym_kAssembler; sym_kNostackframe;
   sym_kInterrupt; sym_kNoreturn; sym_kIocheck; sym_kLocal; sym_kHardfloat; sym_kSoftfloat;
   sym_kMs_abi_default; sym_kMs_abi_cdecl; sym_kSaveregisters; sym_kSysv_abi_default;
   sym_kSysv_abi_cdecl; sym_kVectorcall; sym_kVarargs; sym_kWinapi]; ACTIONS 4110 [sym_kAlias];
   ACTIONS 4085 [sym_kBegin; sym_kClass; sym_kConst; sym_kConstructor; sym_kDestructor;
   sym_kExports; sym_kFunction]; ACTIONS 1016 [sym_kInline]; ACTIONS 4085 [sym_kLabel;
   sym_kProcedure; sym_kResourcestring; sym_kThreadvar; sym_kType; sym_kUses; sym_kVar]].

(** State 2217. *)
Definition ts_parse_table_2217 : parse_row :=
  [ACTIONS 10594 [anon_sym_LBRACK; aux_sym_ppUsesBlock_token1]; ACTIONS 3 [sym__space];
   ACTIONS 5 [sym_ppDirective]; ACTIONS 3 [sym_comment]; ACTIONS 10594 [sym_identifier;
   sym_kDefault; sym_kNodefault; sym_kDispId; sym_kGeneric; sym_kOperator; sym_kPublic;
   sym_kStatic; sym_kVirtual; sym_kAbstract; sym_kDynamic; sym_kOverride; sym_kOverload;
   sym_kReintroduce; sym_kStdcall; sym_kCdecl; sym_kCppdecl; sym_kPascal; sym_kRegister;
   sym_kMwpascal; sym_kExternal; sym_kMessage; sym_kDeprecated; sym_kExperimental; sym_kPlatform;
   sym_kUnimplemented; sym_kCvar; sym_kExport; sym_kFar; sym_kNear; sym_kSafecall;
   sym_kAssembler; sym_kNostackframe; sym_kInterrupt; sym_kNoreturn; sym_kIocheck; sym_kLocal;
   sym_kHardfloat; sym_kSoftfloat; sym_kMs_abi_default; sym_kMs_abi_cdecl; sym_kSaveregisters;
   sym_kSysv_abi_default; sym_kSysv_abi_cdecl; sym_kVectorcall; sym_kVarargs; sym_kWinapi;
   sym_kAlias; sym_kClass; sym_kConst; sym_kConstructor; sym_kDestructor; sym_kEnd; sym_kExports;
   sym_kFinalization; sym_kFunction; sym_kImplementation; sym_kInitialization; sym_kInline;
   sym_kInterface; sym_kLabel; sym_kProcedure; sym_kProperty; sym_kResourcestring;
   sym_kThreadvar; sym_kType; sym_kUses; sym_kVar]].

(** State 2218. *)
Definition ts_parse_table_2218 : parse_row :=
  [STATE 2630 [sym__procAttribute]; STATE 14946 [sym_procAttribute];
   STATE 2340 [sym_procExternal; aux_sym_declVar_repeat2]; ACTIONS 13922 [anon_sym_LBRACK];
   ACTIONS 6795 [aux_sym_ppUsesBlock_token1]; ACTIONS 3 [sym__space];
   ACTIONS 5 [sym_ppDirective]; ACTIONS 3 [sym_comment]; ACTIONS 6795 [sym_identifier];
   ACTIONS 6802 [sym_kDefault; sym_kNodefault]; ACTIONS 6805 [sym_kDispId];
   ACTIONS 6795 [sym_kGeneric; sym_kOperator]; ACTIONS 6808 [sym_kPublic];
   ACTIONS 6802 [sym_kStatic; sym_kVirtual; sym_kAbstract; sym_kDynamic; sym_kOverride;
   sym_kOverload; sym_kReintroduce; sym_kStdcall; sym_kCdecl; sym_kCppdecl; sym_kPascal;
   sym_kRegister; sym_kMwpascal]; ACTIONS 13801 [sym_kExternal]; ACTIONS 6811 [sym_kMessage];
   ACTIONS 6814 [sym_kDeprecated]; ACTIONS 6802 [sym_kExperimental; sym_kPlatform;
   sym_kUnimplemented; sym_kCvar]; ACTIONS 6817 [sym_kExport]; ACTIONS 6802 [sym_kFar; sym_kNear;
   sym_kSafecall; sym_kAssembler; sym_kNostackframe; sym_kInterrupt; sym_kNoreturn; sym_kIocheck;
   sym_kLocal; sym_kHardfloat; sym_kSoftfloat; sym_kMs_abi_default; sym_kMs_abi_cdecl;
   sym_kSaveregisters; sym_kSysv_abi_default; sym_kSysv_abi_cdecl; sym_kVectorcall; sym_kVarargs;
   sym_kWinapi]; ACTIONS 6820 [sym_kAlias]; ACTIONS 6795 [sym_kAsm; sym_kBegin; sym_kClass;
   sym_kConst; sym_kConstructor; sym_kDestructor; sym_kExports; sym_kFunction];
   ACTIONS 1016 [sym_kInline]; ACTIONS 6795 [sym_kLabel; sym_kProcedure; sym_kResourcestring;
   sym_kThreadvar; sym_kType; sym_kUses; sym_kVar]].

(** State 2219. *)
Definition ts_parse_table_2219 : parse_row :=
  [STATE 2630 [sym__procAttribute]; STATE 14946 [sym_procAttribute];
   STATE 2250 [sym_procExternal; aux_sym_declVar_repeat2]; ACTIONS 13925 [anon_sym_LBRACK];
   ACTIONS 3755 [aux_sym_ppUsesBlock_token1]; ACTIONS 3 [sym__space];
   ACTIONS 5 [sym_ppDirective]; ACTIONS 3 [sym_comment]; ACTIONS 3755 [sym_identifier];
   ACTIONS 3762 [sym_kDefault; sym_kNodefault]; ACTIONS 3765 [sym_kDispId];
   ACTIONS 3755 [sym_kGeneric; sym_kOperator]; ACTIONS 3768 [sym_kPublic];
   ACTIONS 3762 [sym_kStatic; sym_kVirtual; sym_kAbstract; sym_kDynamic; sym_kOverride;
   sym_kOverload; sym_kReintroduce; sym_kStdcall; sym_kCdecl; sym_kCppdecl; sym_kPascal;
   sym_kRegister; sym_kMwpascal]; ACTIONS 13801 [sym_kExternal]; ACTIONS 3771 [sym_kMessage];
   ACTIONS 3774 [sym_kDeprecated]; ACTIONS 3762 [sym_kExperimental; sym_kPlatform;
   sym_kUnimplemented; sym_kCvar]; ACTIONS 3777 [sym_kExport]; ACTIONS 3762 [sym_kFar; sym_kNear;
   sym_kSafecall; sym_kAssembler; sym_kNostackframe; sym_kInterrupt; sym_kNoreturn; sym_kIocheck;
   sym_kLocal; sym_kHardfloat; sym_kSoftfloat; sym_kMs_abi_default; sym_kMs_abi_cdecl;
   sym_kSaveregisters; sym_kSysv_abi_default; sym_kSysv_abi_cdecl; sym_kVectorcall; sym_kVarargs;
   sym_kWinapi]; ACTIONS 3780 [sym_kAlias]; ACTIONS 3755 [sym_kAsm; sym_kBegin; sym_kClass;
   sym_kConst; sym_kConstructor; sym_kDestructor; sym_kExports; sym_kFunction];
   ACTIONS 1016 [sym_kInline]; ACTIONS 3755 [sym_kLabel; sym_kProcedure; sym_kResourcestring;
   sym_kThreadvar; sym_kType; sym_kUses; sym_kVar]].

(** State 2220. *)
Definition ts_parse_table_2220 : parse_row :=
  [STATE 2630 [sym__procAttribute]; STATE 14946 [sym_procAttribute];
   STATE 2340 [sym_procExternal; aux_sym_declVar_repeat2]; ACTIONS 13928 [anon_sym_LBRACK];
   ACTIONS 3727 [aux_sym_ppUsesBlock_token1]; ACTIONS 3 [sym__space];
   ACTIONS 5 [sym_ppDirective]; ACTIONS 3 [sym_comment]; ACTIONS 3727 [sym_identifier];
   ACTIONS 3734 [sym_kDefault; sym_kNodefault]; ACTIONS 3737 [sym_kDispId];
   ACTIONS 3727 [sym_kGeneric; sym_kOperator]; ACTIONS 3740 [sym_kPublic];
   ACTIONS 3734 [sym_kStatic; sym_kVirtual; sym_kAbstract; sym_kDynamic; sym_kOverride;
   sym_kOverload; sym_kReintroduce; sym_kStdcall; sym_kCdecl; sym_kCppdecl; sym_kPascal;
   sym_kRegister; sym_kMwpascal]; ACTIONS 13801 [sym_kExternal]; ACTIONS 3743 [sym_kMessage];
   ACTIONS 3746 [sym_kDeprecated]; ACTIONS 3734 [sym_kExperimental; sym_kPlatform;
   sym_kUnimplemented; sym_kCvar]; ACTIONS 3749 [sym_kExport]; ACTIONS 3734 [sym_kFar; sym_kNear;
   sym_kSafecall; sym_kAssembler; sym_kNostackframe; sym_kInterrupt; sym_kNoreturn; sym_kIocheck;
   sym_kLocal; sym_kHardfloat; sym_kSoftfloat; sym_kMs_abi_default; sym_kMs_abi_cdecl;
   sym_kSaveregisters; sym_kSysv_abi_default; sym_kSysv_abi_cdecl; sym_kVectorcall; sym_kVarargs;
   sym_kWinapi]; ACTIONS 3752 [sym_kAlias]; ACTIONS 3727 [sym_kAsm; sym_kBegin; sym_kClass;
   sym_kConst; sym_kConstructor; sym_kDestructor; sym_kExports; sym_kFunction];
   ACTIONS 1016 [sym_kInline]; ACTIONS 3727 [sym_kLabel; sym_kProcedure; sym_kResourcestring;
   sym_kThreadvar; sym_kType; sym_kUses; sym_kVar]].

(** State 2221. *)
Definition ts_parse_table_2221 : parse_row :=
  [STATE 2633 [sym__procAttribute]; STATE 14888 [sym_procAttribute];
   STATE 2287 [sym_procExternal; aux_sym_declVar_repeat2]; ACTIONS 6795 [ts_builtin_sym_end];
   ACTIONS 13931 [anon_sym_LBRACK]; ACTIONS 6795 [aux_sym_ppUsesBlock_token1];
   ACTIONS 3 [sym__space]; ACTIONS 5 [sym_ppDirective]; ACTIONS 3 [sym_comment];
   ACTIONS 6795 [sym_identifier]; ACTIONS 6802 [sym_kDefault; sym_kNodefault];
   ACTIONS 6805 [sym_kDispId]; ACTIONS 6795 [sym_kGeneric; sym_kOperator];
   ACTIONS 6808 [sym_kPublic]; ACTIONS 6802 [sym_kStatic; sym_kVirtual; sym_kAbstract;
   sym_kDynamic; sym_kOverride; sym_kOverload; sym_kReintroduce; sym_kStdcall; sym_kCdecl;
   sym_kCppdecl; sym_kPascal; sym_kRegister; sym_kMwpascal]; ACTIONS 13860 [sym_kExternal];
   ACTIONS 6811 [sym_kMessage]; ACTIONS 6814 [sym_kDeprecated]; ACTIONS 6802 [sym_kExperimental;
   sym_kPlatform; sym_kUnimplemented; sym_kCvar]; ACTIONS 6817 [sym_kExport];
   ACTIONS 6802 [sym_kFar; sym_kNear; sym_kSafecall; sym_kAssembler; sym_kNostackframe;
   sym_kInterrupt; sym_kNoreturn; sym_kIocheck; sym_kLocal; sym_kHardfloat; sym_kSoftfloat;
   sym_kMs_abi_default; sym_kMs_abi_cdecl; sym_kSaveregisters; sym_kSysv_abi_default;
   sym_kSysv_abi_cdecl; sym_kVectorcall; sym_kVarargs; sym_kWinapi]; ACTIONS 6820 [sym_kAlias];
   ACTIONS 6795 [sym_kBegin; sym_kClass; sym_kConst; sym_kConstructor; sym_kDestructor;
   sym_kExports; sym_kFunction]; ACTIONS 1016 [sym_kInline]; ACTIONS 6795 [sym_kLabel;
   sym_kProcedure; sym_kResourcestring; sym_kThreadvar; sym_kType; sym_kUses; sym_kVar]].

(** State 2222. *)
Definition ts_parse_table_2222 : parse_row :=
  [STATE 2633 [sym__procAttribute]; STATE 14888 [sym_procAttribute];
   STATE 2288 [sym_procExternal; aux_sym_declVar_repeat2]; ACTIONS 3755 [ts_builtin_sym_end];
   ACTIONS 13934 [anon_sym_LBRACK]; ACTIONS 3755 [aux_sym_ppUsesBlock_token1];
   ACTIONS 3 [sym__space]; ACTIONS 5 [sym_ppDirective]; ACTIONS 3 [sym_comment];
   ACTIONS 3755 [sym_identifier]; ACTIONS 3762 [sym_kDefault; sym_kNodefault];
   ACTIONS 3765 [sym_kDispId]; ACTIONS 3755 [sym_kGeneric; sym_kOperator];
   ACTIONS 3768 [sym_kPublic]; ACTIONS 3762 [sym_kStatic; sym_kVirtual; sym_kAbstract;
   sym_kDynamic; sym_kOverride; sym_kOverload; sym_kReintroduce; sym_kStdcall; sym_kCdecl;
   sym_kCppdecl; sym_kPascal; sym_kRegister; sym_kMwpascal]; ACTIONS 13860 [sym_kExternal];
   ACTIONS 3771 [sym_kMessage]; ACTIONS 3774 [sym_kDeprecated]; ACTIONS 3762 [sym_kExperimental;
   sym_kPlatform; sym_kUnimplemented; sym_kCvar]; ACTIONS 3777 [sym_kExport];
   ACTIONS 3762 [sym_kFar; sym_kNear; sym_kSafecall; sym_kAssembler; sym_kNostackframe;
   sym_kInterrupt; sym_kNoreturn; sym_kIocheck; sym_kLocal; sym_kHardfloat; sym_kSoftfloat;
   sym_kMs_abi_default; sym_kMs_abi_cdecl; sym_kSaveregisters; sym_kSysv_abi_default;
   sym_kSysv_abi_cdecl; sym_kVectorcall; sym_kVarargs; sym_kWinapi]; ACTIONS 3780 [sym_kAlias];
   ACTIONS 3755 [sym_kBegin; sym_kClass; sym_kConst; sym_kConstructor; sym_kDestructor;
   sym_kExports; sym_kFunction]; ACTIONS 1016 [sym_kInline]; ACTIONS 3755 [sym_kLabel;
   sym_kProcedure; sym_kResourcestring; sym_kThreadvar; sym_kType; sym_kUses; sym_kVar]].

(** State 2223. *)
Definition ts_parse_table_2223 : parse_row :=
  [STATE 2633 [sym__procAttribute]; STATE 14888 [sym_procAttribute];
   STATE 2287 [sym_procExternal; aux_sym_declVar_repeat2]; ACTIONS 3727 [ts_builtin_sym_end];
   ACTIONS 13937 [anon_sym_LBRACK]; ACTIONS 3727 [aux_sym_ppUsesBlock_token1];
   ACTIONS 3 [sym__space]; ACTIONS 5 [sym_ppDirective]; ACTIONS 3 [sym_comment];
   ACTIONS 3727 [sym_identifier]; ACTIONS 3734 [sym_kDefault; sym_kNodefault];
   ACTIONS 3737 [sym_kDispId]; ACTIONS 3727 [sym_kGeneric; sym_kOperator];
   ACTIONS 3740 [sym_kPublic]; ACTIONS 3734 [sym_kStatic; sym_kVirtual; sym_kAbstract;
   sym_kDynamic; sym_kOverride; sym_kOverload; sym_kReintroduce; sym_kStdcall; sym_kCdecl;
   sym_kCppdecl; sym_kPascal; sym_kRegister; sym_kMwpascal]; ACTIONS 13860 [sym_kExternal];
   ACTIONS 3743 [sym_kMessage]; ACTIONS 3746 [sym_kDeprecated]; ACTIONS 3734 [sym_kExperimental;
   sym_kPlatform; sym_kUnimplemented; sym_kCvar]; ACTIONS 3749 [sym_kExport];
   ACTIONS 3734 [sym_kFar; sym_kNear; sym_kSafecall; sym_kAssembler; sym_kNostackframe;
   sym_kInterrupt; sym_kNoreturn; sym_kIocheck; sym_kLocal; sym_kHardfloat; sym_kSoftfloat;
   sym_kMs_abi_default; sym_kMs_abi_cdecl; sym_kSaveregisters; sym_kSysv_abi_default;
   sym_kSysv_abi_cdecl; sym_kVectorcall; sym_kVarargs; sym_kWinapi]; ACTIONS 3752 [sym_kAlias];
   ACTIONS 3727 [sym_kBegin; sym_kClass; sym_kConst; sym_kConstructor; sym_kDestructor;
   sym_kExports; sym_kFunction]; ACTIONS 1016 [sym_kInline]; ACTIONS 3727 [sym_kLabel;
   sym_kProcedure; sym_kResourcestring; sym_kThreadvar; sym_kType; sym_kUses; sym_kVar]].

(** State 2224. *)
Definition ts_parse_table_2224 : parse_row :=
  [STATE 2633 [sym__procAttribute]; STATE 14888 [sym_procAttribute];
   STATE 2290 [sym_procExternal; aux_sym_declVar_repeat2]; ACTIONS 4478 [ts_builtin_sym_end];
   ACTIONS 13940 [anon_sym_LBRACK]; ACTIONS 4478 [aux_sym_ppUsesBlock_token1];
   ACTIONS 3 [sym__space]; ACTIONS 5 [sym_ppDirective]; ACTIONS 3 [sym_comment];
   ACTIONS 4478 [sym_identifier]; ACTIONS 4485 [sym_kDefault; sym_kNodefault];
   ACTIONS 4488 [sym_kDispId]; ACTIONS 4478 [sym_kGeneric; sym_kOperator];
   ACTIONS 4491 [sym_kPublic]; ACTIONS 4485 [sym_kStatic; sym_kVirtual; sym_kAbstract;
   sym_kDynamic; sym_kOverride; sym_kOverload; sym_kReintroduce; sym_kStdcall; sym_kCdecl;
   sym_kCppdecl; sym_kPascal; sym_kRegister; sym_kMwpascal]; ACTIONS 13860 [sym_kExternal];
   ACTIONS 4494 [sym_kMessage]; ACTIONS 4497 [sym_kDeprecated]; ACTIONS 4485 [sym_kExperimental;
   sym_kPlatform; sym_kUnimplemented; sym_kCvar]; ACTIONS 4500 [sym_kExport];
   ACTIONS 4485 [sym_kFar; sym_kNear; sym_kSafecall; sym_kAssembler; sym_kNostackframe;
   sym_kInterrupt; sym_kNoreturn; sym_kIocheck; sym_kLocal; sym_kHardfloat; sym_kSoftfloat;
   sym_kMs_abi_default; sym_kMs_abi_cdecl; sym_kSaveregisters; sym_kSysv_abi_default;
   sym_kSysv_abi_cdecl; sym_kVectorcall; sym_kVarargs; sym_kWinapi]; ACTIONS 4503 [sym_kAlias];
   ACTIONS 4478 [sym_kBegin; sym_kClass; sym_kConst; sym_kConstructor; sym_kDestructor;
   sym_kExports; sym_kFunction]; ACTIONS 1016 [sym_kInline]; ACTIONS 4478 [sym_kLabel;
   sym_kProcedure; sym_kResourcestring; sym_kThreadvar; sym_kType; sym_kUses; sym_kVar]].

(** State 2225. *)
Definition ts_parse_table_2225 : parse_row :=
  [STATE 2633 [sym__procAttribute]; STATE 14888 [sym_procAttribute];
   STATE 2291 [sym_procExternal; aux_sym_declVar_repeat2]; ACTIONS 4506 [ts_builtin_sym_end];
   ACTIONS 13943 [anon_sym_LBRACK]; ACTIONS 4506 [aux_sym_ppUsesBlock_token1];
   ACTIONS 3 [sym__space]; ACTIONS 5 [sym_ppDirective]; ACTIONS 3 [sym_comment];
   ACTIONS 4506 [sym_identifier]; ACTIONS 4513 [sym_kDefault; sym_kNodefault];
   ACTIONS 4516 [sym_kDispId]; ACTIONS 4506 [sym_kGeneric; sym_kOperator];
   ACTIONS 4519 [sym_kPublic]; ACTIONS 4513 [sym_kStatic; sym_kVirtual; sym_kAbstract;
   sym_kDynamic; sym_kOverride; sym_kOverload; sym_kReintroduce; sym_kStdcall; sym_kCdecl;
   sym_kCppdecl; sym_kPascal; sym_kRegister; sym_kMwpascal]; ACTIONS 13860 [sym_kExternal];
   ACTIONS 4522 [sym_kMessage]; ACTIONS 4525 [sym_kDeprecated]; ACTIONS 4513 [sym_kExperimental;
   sym_kPlatform; sym_kUnimplemented; sym_kCvar]; ACTIONS 4528 [sym_kExport];
   ACTIONS 4513 [sym_kFar; sym_kNear; sym_kSafecall; sym_kAssembler; sym_kNostackframe;
   sym_kInterrupt; sym_kNoreturn; sym_kIocheck; sym_kLocal; sym_kHardfloat; sym_kSoftfloat;
   sym_kMs_abi_default; sym_kMs_abi_cdecl; sym_kSaveregisters; sym_kSysv_abi_default;
   sym_kSysv_abi_cdecl; sym_kVectorcall; sym_kVarargs; sym_kWinapi]; ACTIONS 4531 [sym_kAlias];
   ACTIONS 4506 [sym_kBegin; sym_kClass; sym_kConst; sym_kConstructor; sym_kDestructor;
   sym_kExports; sym_kFunction]; ACTIONS 1016 [sym_kInline]; ACTIONS 4506 [sym_kLabel;
   sym_kProcedure; sym_kResourcestring; sym_kThreadvar; sym_kType; sym_kUses; sym_kVar]].

(** State 2226. *)
Definition ts_parse_table_2226 : parse_row :=
  [STATE 2633 [sym__procAttribute]; STATE 14888 [sym_procAttribute];
   STATE 2293 [sym_procExternal; aux_sym_declVar_repeat2]; ACTIONS 4534 [ts_builtin_sym_end];
   ACTIONS 13946 [anon_sym_LBRACK]; ACTIONS 4534 [aux_sym_ppUsesBlock_token1];
   ACTIONS 3 [sym__space]; ACTIONS 5 [sym_ppDirective]; ACTIONS 3 [sym_comment];
   ACTIONS 4534 [sym_identifier]; ACTIONS 4541 [sym_kDefault; sym_kNodefault];
   ACTIONS 4544 [sym_kDispId]; ACTIONS 4534 [sym_kGeneric; sym_kOperator];
   ACTIONS 4547 [sym_kPublic]; ACTIONS 4541 [sym_kStatic; sym_kVirtual; sym_kAbstract;
   sym_kDynamic; sym_kOverride; sym_kOverload; sym_kReintroduce; sym_kStdcall; sym_kCdecl;
   sym_kCppdecl; sym_kPascal; sym_kRegister; sym_kMwpascal]; ACTIONS 13860 [sym_kExternal];
   ACTIONS 4550 [sym_kMessage]; ACTIONS 4553 [sym_kDeprecated]; ACTIONS 4541 [sym_kExperimental;
   sym_kPlatform; sym_kUnimplemented; sym_kCvar]; ACTIONS 4556 [sym_kExport];
   ACTIONS 4541 [sym_kFar; sym_kNear; sym_kSafecall; sym_kAssembler; sym_kNostackframe;
   sym_kInterrupt; sym_kNoreturn; sym_kIocheck; sym_kLocal; sym_kHardfloat; sym_kSoftfloat;
   sym_kMs_abi_default; sym_kMs_abi_cdecl; sym_kSaveregisters; sym_kSysv_abi_default;
   sym_kSysv_abi_cdecl; sym_kVectorcall; sym_kVarargs; sym_kWinapi]; ACTIONS 4559 [sym_kAlias];
   ACTIONS 4534 [sym_kBegin; sym_kClass; sym_kConst; sym_kConstructor; sym_kDestructor;
   sym_kExports; sym_kFunction]; ACTIONS 1016 [sym_kInline]; ACTIONS 4534 [sym_kLabel;
   sym_kProcedure; sym_kResourcestring; sym_kThreadvar; sym_kType; sym_kUses; sym_kVar]].

(** State 2227. *)
Definition ts_parse_table_2227 : parse_row :=
  [STATE 2633 [sym__procAttribute]; STATE 14888 [sym_procAttribute];
   STATE 2301 [sym_procExternal; aux_sym_declVar_repeat2]; ACTIONS 4593 [ts_builtin_sym_end];
   ACTIONS 13949 [anon_sym_LBRACK]; ACTIONS 4593 [aux_sym_ppUsesBlock_token1];
   ACTIONS 3 [sym__space]; ACTIONS 5 [sym_ppDirective]; ACTIONS 3 [sym_comment];
   ACTIONS 4593 [sym_identifier]; ACTIONS 4600 [sym_kDefault; sym_kNodefault];
   ACTIONS 4603 [sym_kDispId]; ACTIONS 4593 [sym_kGeneric; sym_kOperator];
   ACTIONS 4606 [sym_kPublic]; ACTIONS 4600 [sym_kStatic; sym_kVirtual; sym_kAbstract;
   sym_kDynamic; sym_kOverride; sym_kOverload; sym_kReintroduce; sym_kStdcall; sym_kCdecl;
   sym_kCppdecl; sym_kPascal; sym_kRegister; sym_kMwpascal]; ACTIONS 13860 [sym_kExternal];
   ACTIONS 4609 [sym_kMessage]; ACTIONS 4612 [sym_kDeprecated]; ACTIONS 4600 [sym_kExperimental;
   sym_kPlatform; sym_kUnimplemented; sym_kCvar]; ACTIONS 4615 [sym_kExport];
   ACTIONS 4600 [sym_kFar; sym_kNear; sym_kSafecall; sym_kAssembler; sym_kNostackframe;
   sym_kInterrupt; sym_kNoreturn; sym_kIocheck; sym_kLocal; sym_kHardfloat; sym_kSoftfloat;
   sym_kMs_abi_default; sym_kMs_abi_cdecl; sym_kSaveregisters; sym_kSysv_abi_default;
   sym_kSysv_abi_cdecl; sym_kVectorcall; sym_kVarargs; sym_kWinapi]; ACTIONS 4618 [sym_kAlias];
   ACTIONS 4593 [sym_kBegin; sym_kClass; sym_kConst; sym_kConstructor; sym_kDestructor;
   sym_kExports; sym_kFunction]; ACTIONS 1016 [sym_kInline]; ACTIONS 4593 [sym_kLabel;
   sym_kProcedure; sym_kResourcestring; sym_kThreadvar; sym_kType; sym_kUses; sym_kVar]].

(** State 2228. *)
Definition ts_parse_table_2228 : parse_row :=
  [STATE 2633 [sym__procAttribute]; STATE 14888 [sym_procAttribute];
   STATE 2312 [sym_procExternal; aux_sym_declVar_repeat2]; ACTIONS 4761 [ts_builtin_sym_end];
   ACTIONS 13952 [anon_sym_LBRACK]; ACTIONS 4761 [aux_sym_ppUsesBlock_token1];
   ACTIONS 3 [sym__space]; ACTIONS 5 [sym_ppDirective]; ACTIONS 3 [sym_comment];
   ACTIONS 4761 [sym_identifier]; ACTIONS 4768 [sym_kDefault; sym_kNodefault];
   ACTIONS 4771 [sym_kDispId]; ACTIONS 4761 [sym_kGeneric; sym_kOperator];
   ACTIONS 4774 [sym_kPublic]; ACTIONS 4768 [sym_kStatic; sym_kVirtual; sym_kAbstract;
   sym_kDynamic; sym_kOverride; sym_kOverload; sym_kReintroduce; sym_kStdcall; sym_kCdecl;
   sym_kCppdecl; sym_kPascal; sym_kRegister; sym_kMwpascal]; ACTIONS 13860 [sym_kExternal];
   ACTIONS 4777 [sym_kMessage]; ACTIONS 4780 [sym_kDeprecated]; ACTIONS 4768 [sym_kExperimental;
   sym_kPlatform; sym_kUnimplemented; sym_kCvar]; ACTIONS 4783 [sym_kExport];
   ACTIONS 4768 [sym_kFar; sym_kNear; sym_kSafecall; sym_kAssembler; sym_kNostackframe;
   sym_kInterrupt; sym_kNoreturn; sym_kIocheck; sym_kLocal; sym_kHardfloat; sym_kSoftfloat;
   sym_kMs_abi_default; sym_kMs_abi_cdecl; sym_kSaveregisters; sym_kSysv_abi_default;
   sym_kSysv_abi_cdecl; sym_kVectorcall; sym_kVarargs; sym_kWinapi]; ACTIONS 4786 [sym_kAlias];
   ACTIONS 4761 [sym_kBegin; sym_kClass; sym_kConst; sym_kConstructor; sym_kDestructor;
   sym_kExports; sym_kFunction]; ACTIONS 1016 [sym_kInline]; ACTIONS 4761 [sym_kLabel;
   sym_kProcedure; sym_kResourcestring; sym_kThreadvar; sym_kType; sym_kUses; sym_kVar]].

(** State 2229. *)
Definition ts_parse_table_2229 : parse_row :=
  [STATE 2630 [sym__procAttribute]; STATE 14946 [sym_procAttribute];
   STATE 2253 [sym_procExternal; aux_sym_declVar_repeat2]; ACTIONS 13955 [anon_sym_LBRACK];
   ACTIONS 4478 [aux_sym_ppUsesBlock_token1]; ACTIONS 3 [sym__space];
   ACTIONS 5 [sym_ppDirective]; ACTIONS 3 [sym_comment]; ACTIONS 4478 [sym_identifier];
   ACTIONS 4485 [sym_kDefault; sym_kNodefault]; ACTIONS 4488 [sym_kDispId];
   ACTIONS 4478 [sym_kGeneric; sym_kOperator]; ACTIONS 4491 [sym_kPublic];
   ACTIONS 4485 [sym_kStatic; sym_kVirtual; sym_kAbstract; sym_kDynamic; sym_kOverride;
   sym_kOverload; sym_kReintroduce; sym_kStdcall; sym_kCdecl; sym_kCppdecl; sym_kPascal;
   sym_kRegister; sym_kMwpascal]; ACTIONS 13801 [sym_kExternal]; ACTIONS 4494 [sym_kMessage];
   ACTIONS 4497 [sym_kDeprecated]; ACTIONS 4485 [sym_kExperimental; sym_kPlatform;
   sym_kUnimplemented; sym_kCvar]; ACTIONS 4500 [sym_kExport]; ACTIONS 4485 [sym_kFar; sym_kNear;
   sym_kSafecall; sym_kAssembler; sym_kNostackframe; sym_kInterrupt; sym_kNoreturn; sym_kIocheck;
   sym_kLocal; sym_kHardfloat; sym_kSoftfloat; sym_kMs_abi_default; sym_kMs_abi_cdecl;
   sym_kSaveregisters; sym_kSysv_abi_default; sym_kSysv_abi_cdecl; sym_kVectorcall; sym_kVarargs;
   sym_kWinapi]; ACTIONS 4503 [sym_kAlias]; ACTIONS 4478 [sym_kAsm; sym_kBegin; sym_kClass;
   sym_kConst; sym_kConstructor; sym_kDestructor; sym_kExports; sym_kFunction];
   ACTIONS 1016 [sym_kInline]; ACTIONS 4478 [sym_kLabel; sym_kProcedure; sym_kResourcestring;
   sym_kThreadvar; sym_kType; sym_kUses; sym_kVar]].

(** State 2230. *)
Definition ts_parse_table_2230 : parse_row :=
  [ACTIONS 9974 [anon_sym_LBRACK; aux_sym_ppUsesBlock_token1]; ACTIONS 3 [sym__space];
   ACTIONS 5 [sym_ppDirective]; ACTIONS 3 [sym_comment]; ACTIONS 9974 [sym_kDefault;
   sym_kNodefault; sym_kDispId; sym_kGeneric; sym_kOperator; sym_kPublic; sym_kForward;
   sym_kStatic; sym_kVirtual; sym_kAbstract; sym_kDynamic; sym_kOverride; sym_kOverload;
   sym_kReintroduce; sym_kStdcall; sym_kCdecl; sym_kCppdecl; sym_kPascal; sym_kRegister;
   sym_kMwpascal; sym_kExternal; sym_kMessage; sym_kDeprecated; sym_kExperimental; sym_kPlatform;
   sym_kUnimplemented; sym_kCvar; sym_kExport; sym_kFar; sym_kNear; sym_kSafecall;
   sym_kAssembler; sym_kNostackframe; sym_kInterrupt; sym_kNoreturn; sym_kIocheck; sym_kLocal;
   sym_kHardfloat; sym_kSoftfloat; sym_kMs_abi_default; sym_kMs_abi_cdecl; sym_kSaveregisters;
   sym_kSysv_abi_default; sym_kSysv_abi_cdecl; sym_kVectorcall; sym_kVarargs; sym_kWinapi;
   sym_kAlias; sym_kClass; sym_kConst; sym_kConstructor; sym_kDestructor; sym_kEnd; sym_kExports;
   sym_kFinalization; sym_kFunction; sym_kImplementation; sym_kInitialization; sym_kInline;
   sym_kInterface; sym_kLabel; sym_kProcedure; sym_kProperty; sym_kResourcestring;
   sym_kThreadvar; sym_kType; sym_kUses; sym_kVar]].

(** State 2231. *)
Definition ts_parse_table_2231 : parse_row :=
  [STATE 2630 [sym__procAttribute]; STATE 14946 [sym_procAttribute];
   STATE 2340 [sym_procExternal; aux_sym_declVar_repeat2]; ACTIONS 13958 [anon_sym_LBRACK];
   ACTIONS 5722 [aux_sym_ppUsesBlock_token1]; ACTIONS 3 [sym__space];
   ACTIONS 5 [sym_ppDirective]; ACTIONS 3 [sym_comment]; ACTIONS 5722 [sym_identifier];
   ACTIONS 5729 [sym_kDefault; sym_kNodefault]; ACTIONS 5732 [sym_kDispId];
   ACTIONS 5722 [sym_kGeneric; sym_kOperator]; ACTIONS 5735 [sym_kPublic];
   ACTIONS 5729 [sym_kStatic; sym_kVirtual; sym_kAbstract; sym_kDynamic; sym_kOverride;
   sym_kOverload; sym_kReintroduce; sym_kStdcall; sym_kCdecl; sym_kCppdecl; sym_kPascal;
   sym_kRegister; sym_kMwpascal]; ACTIONS 13801 [sym_kExternal]; ACTIONS 5738 [sym_kMessage];
   ACTIONS 5741 [sym_kDeprecated]; ACTIONS 5729 [sym_kExperimental; sym_kPlatform;
   sym_kUnimplemented; sym_kCvar]; ACTIONS 5744 [sym_kExport]; ACTIONS 5729 [sym_kFar; sym_kNear;
   sym_kSafecall; sym_kAssembler; sym_kNostackframe; sym_kInterrupt; sym_kNoreturn; sym_kIocheck;
   sym_kLocal; sym_kHardfloat; sym_kSoftfloat; sym_kMs_abi_default; sym_kMs_abi_cdecl;
   sym_kSaveregisters; sym_kSysv_abi_default; sym_kSysv_abi_cdecl; sym_kVectorcall; sym_kVarargs;
   sym_kWinapi]; ACTIONS 5747 [sym_kAlias]; ACTIONS 5722 [sym_kAsm; sym_kBegin; sym_kClass;
   sym_kConst; sym_kConstructor; sym_kDestructor; sym_kExports; sym_kFunction];
   ACTIONS 1016 [sym_kInline]; ACTIONS 5722 [sym_kLabel; sym_kProcedure; sym_kResourcestring;
   sym_kThreadvar; sym_kType; sym_kUses; sym_kVar]].

(** State 2232. *)
Definition ts_parse_table_2232 : parse_row :=
  [STATE 2630 [sym__procAttribute]; STATE 14946 [sym_procAttribute];
   STATE 2340 [sym_procExternal; aux_sym_declVar_repeat2]; ACTIONS 13961 [anon_sym_LBRACK];
   ACTIONS 7356 [aux_sym_ppUsesBlock_token1]; ACTIONS 3 [sym__space];
   ACTIONS 5 [sym_ppDirective]; ACTIONS 3 [sym_comment]; ACTIONS 7356 [sym_identifier];
   ACTIONS 7363 [sym_kDefault; sym_kNodefault]; ACTIONS 7366 [sym_kDispId];
   ACTIONS 7356 [sym_kGeneric; sym_kOperator]; ACTIONS 7369 [sym_kPublic];
   ACTIONS 7363 [sym_kStatic; sym_kVirtual; sym_kAbstract; sym_kDynamic; sym_kOverride;
   sym_kOverload; sym_kReintroduce; sym_kStdcall; sym_kCdecl; sym_kCppdecl; sym_kPascal;
   sym_kRegister; sym_kMwpascal]; ACTIONS 13801 [sym_kExternal]; ACTIONS 7372 [sym_kMessage];
   ACTIONS 7375 [sym_kDeprecated]; ACTIONS 7363 [sym_kExperimental; sym_kPlatform;
   sym_kUnimplemented; sym_kCvar]; ACTIONS 7378 [sym_kExport]; ACTIONS 7363 [sym_kFar; sym_kNear;
   sym_kSafecall; sym_kAssembler; sym_kNostackframe; sym_kInterrupt; sym_kNoreturn; sym_kIocheck;
   sym_kLocal; sym_kHardfloat; sym_kSoftfloat; sym_kMs_abi_default; sym_kMs_abi_cdecl;
   sym_kSaveregisters; sym_kSysv_abi_default; sym_kSysv_abi_cdecl; sym_kVectorcall; sym_kVarargs;
   sym_kWinapi]; ACTIONS 7381 [sym_kAlias]; ACTIONS 7356 [sym_kAsm; sym_kBegin; sym_kClass;
   sym_kConst; sym_kConstructor; sym_kDestructor; sym_kExports; sym_kFunction];
   ACTIONS 1016 [sym_kInline]; ACTIONS 7356 [sym_kLabel; sym_kProcedure; sym_kResourcestring;
   sym_kThreadvar; sym_kType; sym_kUses; sym_kVar]].

(** State 2233. *)
Definition ts_parse_table_2233 : parse_row :=
  [STATE 2630 [sym__procAttribute]; STATE 14946 [sym_procAttribute];
   STATE 2254 [sym_procExternal; aux_sym_declVar_repeat2]; ACTIONS 13964 [anon_sym_LBRACK];
   ACTIONS 4506 [aux_sym_ppUsesBlock_token1]; ACTIONS 3 [sym__space];
   ACTIONS 5 [sym_ppDirective]; ACTIONS 3 [sym_comment]; ACTIONS 4506 [sym_identifier];
   ACTIONS 4513 [sym_kDefault; sym_kNodefault]; ACTIONS 4516 [sym_kDispId];
   ACTIONS 4506 [sym_kGeneric; sym_kOperator]; ACTIONS 4519 [sym_kPublic];
   ACTIONS 4513 [sym_kStatic; sym_kVirtual; sym_kAbstract; sym_kDynamic; sym_kOverride;
   sym_kOverload; sym_kReintroduce; sym_kStdcall; sym_kCdecl; sym_kCppdecl; sym_kPascal;
   sym_kRegister; sym_kMwpascal]; ACTIONS 13801 [sym_kExternal]; ACTIONS 4522 [sym_kMessage];
   ACTIONS 4525 [sym_kDeprecated]; ACTIONS 4513 [sym_kExperimental; sym_kPlatform;
   sym_kUnimplemented; sym_kCvar]; ACTIONS 4528 [sym_kExport]; ACTIONS 4513 [sym_kFar; sym_kNear;
   sym_kSafecall; sym_kAssembler; sym_kNostackframe; sym_kInterrupt; sym_kNoreturn; sym_kIocheck;
   sym_kLocal; sym_kHardfloat; sym_kSoftfloat; sym_kMs_abi_default; sym_kMs_abi_cdecl;
   sym_kSaveregisters; sym_kSysv_abi_default; sym_kSysv_abi_cdecl; sym_kVectorcall; sym_kVarargs;
   sym_kWinapi]; ACTIONS 4531 [sym_kAlias]; ACTIONS 4506 [sym_kAsm; sym_kBegin; sym_kClass;
   sym_kConst; sym_kConstructor; sym_kDestructor; sym_kExports; sym_kFunction];
   ACTIONS 1016 [sym_kInline]; ACTIONS 4506 [sym_kLabel; sym_kProcedure; sym_kResourcestring;
   sym_kThreadvar; sym_kType; sym_kUses; sym_kVar]].

(** State 2234. *)
Definition ts_parse_table_2234 : parse_row :=
  [ACTIONS 9850 [anon_sym_LBRACK; aux_sym_ppUsesBlock_token1]; ACTIONS 3 [sym__space];
   ACTIONS 5 [sym_ppDirective]; ACTIONS 3 [sym_comment]; ACTIONS 9850 [sym_kDefault;
   sym_kNodefault; sym_kDispId; sym_kGeneric; sym_kOperator; sym_kPublic; sym_kForward;
   sym_kStatic; sym_kVirtual; sym_kAbstract; sym_kDynamic; sym_kOverride; sym_kOverload;
   sym_kReintroduce; sym_kStdcall; sym_kCdecl; sym_kCppdecl; sym_kPascal; sym_kRegister;
   sym_kMwpascal; sym_kExternal; sym_kMessage; sym_kDeprecated; sym_kExperimental; sym_kPlatform;
   sym_kUnimplemented; sym_kCvar; sym_kExport; sym_kFar; sym_kNear; sym_kSafecall;
   sym_kAssembler; sym_kNostackframe; sym_kInterrupt; sym_kNoreturn; sym_kIocheck; sym_kLocal;
   sym_kHardfloat; sym_kSoftfloat; sym_kMs_abi_default; sym_kMs_abi_cdecl; sym_kSaveregisters;
   sym_kSysv_abi_default; sym_kSysv_abi_cdecl; sym_kVectorcall; sym_kVarargs; sym_kWinapi;
   sym_kAlias; sym_kClass; sym_kConst; sym_kConstructor; sym_kDestructor; sym_kEnd; sym_kExports;
   sym_kFinalization; sym_kFunction; sym_kImplementation; sym_kInitialization; sym_kInline;
   sym_kInterface; sym_kLabel; sym_kProcedure; sym_kProperty; sym_kResourcestring;
   sym_kThreadvar; sym_kType; sym_kUses; sym_kVar]].

(** State 2235. *)
Definition ts_parse_table_2235 : parse_row :=
  [ACTIONS 9850 [anon_sym_LBRACK; aux_sym_ppUsesBlock_token1]; ACTIONS 3 [sym__space];
   ACTIONS 5 [sym_ppDirective]; ACTIONS 3 [sym_comment]; ACTIONS 9850 [sym_kDefault;
   sym_kNodefault; sym_kDispId; sym_kGeneric; sym_kOperator; sym_kPublic; sym_kForward;
   sym_kStatic; sym_kVirtual; sym_kAbstract; sym_kDynamic; sym_kOverride; sym_kOverload;
   sym_kReintroduce; sym_kStdcall; sym_kCdecl; sym_kCppdecl; sym_kPascal; sym_kRegister;
   sym_kMwpascal; sym_kExternal; sym_kMessage; sym_kDeprecated; sym_kExperimental; sym_kPlatform;
   sym_kUnimplemented; sym_kCvar; sym_kExport; sym_kFar; sym_kNear; sym_kSafecall;
   sym_kAssembler; sym_kNostackframe; sym_kInterrupt; sym_kNoreturn; sym_kIocheck; sym_kLocal;
   sym_kHardfloat; sym_kSoftfloat; sym_kMs_abi_default; sym_kMs_abi_cdecl; sym_kSaveregisters;
   sym_kSysv_abi_default; sym_kSysv_abi_cdecl; sym_kVectorcall; sym_kVarargs; sym_kWinapi;
   sym_kAlias; sym_kClass; sym_kConst; sym_kConstructor; sym_kDestructor; sym_kEnd; sym_kExports;
   sym_kFinalization; sym_kFunction; sym_kImplementation; sym_kInitialization; sym_kInline;
   sym_kInterface; sym_kLabel; sym_kProcedure; sym_kProperty; sym_kResourcestring;
   sym_kThreadvar; sym_kType; sym_kUses; sym_kVar]].

(** State 2236. *)
Definition ts_parse_table_2236 : parse_row :=
  [STATE 2630 [sym__procAttribute]; STATE 14946 [sym_procAttribute];
   STATE 2267 [sym_procExternal; aux_sym_declVar_repeat2]; ACTIONS 13967 [anon_sym_LBRACK];
   ACTIONS 4534 [aux_sym_ppUsesBlock_token1]; ACTIONS 3 [sym__space];
   ACTIONS 5 [sym_ppDirective]; ACTIONS 3 [sym_comment]; ACTIONS 4534 [sym_identifier];
   ACTIONS 4541 [sym_kDefault; sym_kNodefault]; ACTIONS 4544 [sym_kDispId];
   ACTIONS 4534 [sym_kGeneric; sym_kOperator]; ACTIONS 4547 [sym_kPublic];
   ACTIONS 4541 [sym_kStatic; sym_kVirtual; sym_kAbstract; sym_kDynamic; sym_kOverride;
   sym_kOverload; sym_kReintroduce; sym_kStdcall; sym_kCdecl; sym_kCppdecl; sym_kPascal;
   sym_kRegister; sym_kMwpascal]; ACTIONS 13801 [sym_kExternal]; ACTIONS 4550 [sym_kMessage];
   ACTIONS 4553 [sym_kDeprecated]; ACTIONS 4541 [sym_kExperimental; sym_kPlatform;
   sym_kUnimplemented; sym_kCvar]; ACTIONS 4556 [sym_kExport]; ACTIONS 4541 [sym_kFar; sym_kNear;
   sym_kSafecall; sym_kAssembler; sym_kNostackframe; sym_kInterrupt; sym_kNoreturn; sym_kIocheck;
   sym_kLocal; sym_kHardfloat; sym_kSoftfloat; sym_kMs_abi_default; sym_kMs_abi_cdecl;
   sym_kSaveregisters; sym_kSysv_abi_default; sym_kSysv_abi_cdecl; sym_kVectorcall; sym_kVarargs;
   sym_kWinapi]; ACTIONS 4559 [sym_kAlias]; ACTIONS 4534 [sym_kAsm; sym_kBegin; sym_kClass;
   sym_kConst; sym_kConstructor; sym_kDestructor; sym_kExports; sym_kFunction];
   ACTIONS 1016 [sym_kInline]; ACTIONS 4534 [sym_kLabel; sym_kProcedure; sym_kResourcestring;
   sym_kThreadvar; sym_kType; sym_kUses; sym_kVar]].

(** State 2237. *)
Definition ts_parse_table_2237 : parse_row :=
  [STATE 2630 [sym__procAttribute]; STATE 14946 [sym_procAttribute];
   STATE 2271 [sym_procExternal; aux_sym_declVar_repeat2]; ACTIONS 13970 [anon_sym_LBRACK];
   ACTIONS 4593 [aux_sym_ppUsesBlock_token1]; ACTIONS 3 [sym__space];
   ACTIONS 5 [sym_ppDirective]; ACTIONS 3 [sym_comment]; ACTIONS 4593 [sym_identifier];
   ACTIONS 4600 [sym_kDefault; sym_kNodefault]; ACTIONS 4603 [sym_kDispId];
   ACTIONS 4593 [sym_kGeneric; sym_kOperator]; ACTIONS 4606 [sym_kPublic];
   ACTIONS 4600 [sym_kStatic; sym_kVirtual; sym_kAbstract; sym_kDynamic; sym_kOverride;
   sym_kOverload; sym_kReintroduce; sym_kStdcall; sym_kCdecl; sym_kCppdecl; sym_kPascal;
   sym_kRegister; sym_kMwpascal]; ACTIONS 13801 [sym_kExternal]; ACTIONS 4609 [sym_kMessage];
   ACTIONS 4612 [sym_kDeprecated]; ACTIONS 4600 [sym_kExperimental; sym_kPlatform;
   sym_kUnimplemented; sym_kCvar]; ACTIONS 4615 [sym_kExport]; ACTIONS 4600 [sym_kFar; sym_kNear;
   sym_kSafecall; sym_kAssembler; sym_kNostackframe; sym_kInterrupt; sym_kNoreturn; sym_kIocheck;
   sym_kLocal; sym_kHardfloat; sym_kSoftfloat; sym_kMs_abi_default; sym_kMs_abi_cdecl;
   sym_kSaveregisters; sym_kSysv_abi_default; sym_kSysv_abi_cdecl; sym_kVectorcall; sym_kVarargs;
   sym_kWinapi]; ACTIONS 4618 [sym_kAlias]; ACTIONS 4593 [sym_kAsm; sym_kBegin; sym_kClass;
   sym_kConst; sym_kConstructor; sym_kDestructor; sym_kExports; sym_kFunction];
   ACTIONS 1016 [sym_kInline]; ACTIONS 4593 [sym_kLabel; sym_kProcedure; sym_kResourcestring;
   sym_kThreadvar; sym_kType; sym_kUses; sym_kVar]].

(** State 2238. *)
Definition ts_parse_table_2238 : parse_row :=
  [STATE 2630 [sym__procAttribute]; STATE 14946 [sym_procAttribute];
   STATE 2273 [sym_procExternal; aux_sym_declVar_repeat2]; ACTIONS 13973 [anon_sym_LBRACK];
   ACTIONS 4761 [aux_sym_ppUsesBlock_token1]; ACTIONS 3 [sym__space];
   ACTIONS 5 [sym_ppDirective]; ACTIONS 3 [sym_comment]; ACTIONS 4761 [sym_identifier];
   ACTIONS 4768 [sym_kDefault; sym_kNodefault]; ACTIONS 4771 [sym_kDispId];
   ACTIONS 4761 [sym_kGeneric; sym_kOperator]; ACTIONS 4774 [sym_kPublic];
   ACTIONS 4768 [sym_kStatic; sym_kVirtual; sym_kAbstract; sym_kDynamic; sym_kOverride;
   sym_kOverload; sym_kReintroduce; sym_kStdcall; sym_kCdecl; sym_kCppdecl; sym_kPascal;
   sym_kRegister; sym_kMwpascal]; ACTIONS 13801 [sym_kExternal]; ACTIONS 4777 [sym_kMessage];
   ACTIONS 4780 [sym_kDeprecated]; ACTIONS 4768 [sym_kExperimental; sym_kPlatform;
   sym_kUnimplemented; sym_kCvar]; ACTIONS 4783 [sym_kExport]; ACTIONS 4768 [sym_kFar; sym_kNear;
   sym_kSafecall; sym_kAssembler; sym_kNostackframe; sym_kInterrupt; sym_kNoreturn; sym_kIocheck;
   sym_kLocal; sym_kHardfloat; sym_kSoftfloat; sym_kMs_abi_default; sym_kMs_abi_cdecl;
   sym_kSaveregisters; sym_kSysv_abi_default; sym_kSysv_abi_cdecl; sym_kVectorcall; sym_kVarargs;
   sym_kWinapi]; ACTIONS 4786 [sym_kAlias]; ACTIONS 4761 [sym_kAsm; sym_kBegin; sym_kClass;
   sym_kConst; sym_kConstructor; sym_kDestructor; sym_kExports; sym_kFunction];
   ACTIONS 1016 [sym_kInline]; ACTIONS 4761 [sym_kLabel; sym_kProcedure; sym_kResourcestring;
   sym_kThreadvar; sym_kType; sym_kUses; sym_kVar]].

(** State 2239. *)
Definition ts_parse_table_2239 : parse_row :=
  [STATE 2633 [sym__procAttribute]; STATE 14888 [sym_procAttribute];
   STATE 2258 [sym_procExternal; aux_sym_declVar_repeat2]; ACTIONS 4879 [ts_builtin_sym_end];
   ACTIONS 13976 [anon_sym_LBRACK]; ACTIONS 4879 [aux_sym_ppUsesBlock_token1];
   ACTIONS 3 [sym__space]; ACTIONS 5 [sym_ppDirective]; ACTIONS 3 [sym_comment];
   ACTIONS 4879 [sym_identifier]; ACTIONS 4886 [sym_kDefault; sym_kNodefault];
   ACTIONS 4889 [sym_kDispId]; ACTIONS 4879 [sym_kGeneric; sym_kOperator];
   ACTIONS 4892 [sym_kPublic]; ACTIONS 4886 [sym_kStatic; sym_kVirtual; sym_kAbstract;
   sym_kDynamic; sym_kOverride; sym_kOverload; sym_kReintroduce; sym_kStdcall; sym_kCdecl;
   sym_kCppdecl; sym_kPascal; sym_kRegister; sym_kMwpascal]; ACTIONS 13860 [sym_kExternal];
   ACTIONS 4895 [sym_kMessage]; ACTIONS 4898 [sym_kDeprecated]; ACTIONS 4886 [sym_kExperimental;
   sym_kPlatform; sym_kUnimplemented; sym_kCvar]; ACTIONS 4901 [sym_kExport];
   ACTIONS 4886 [sym_kFar; sym_kNear; sym_kSafecall; sym_kAssembler; sym_kNostackframe;
   sym_kInterrupt; sym_kNoreturn; sym_kIocheck; sym_kLocal; sym_kHardfloat; sym_kSoftfloat;
   sym_kMs_abi_default; sym_kMs_abi_cdecl; sym_kSaveregisters; sym_kSysv_abi_default;
   sym_kSysv_abi_cdecl; sym_kVectorcall; sym_kVarargs; sym_kWinapi]; ACTIONS 4904 [sym_kAlias];
   ACTIONS 4879 [sym_kBegin; sym_kClass; sym_kConst; sym_kConstructor; sym_kDestructor;
   sym_kExports; sym_kFunction]; ACTIONS 1016 [sym_kInline]; ACTIONS 4879 [sym_kLabel;
   sym_kProcedure; sym_kResourcestring; sym_kThreadvar; sym_kType; sym_kUses; sym_kVar]].

(** State 2240. *)
Definition ts_parse_table_2240 : parse_row :=
  [STATE 2633 [sym__procAttribute]; STATE 14888 [sym_procAttribute];
   STATE 2287 [sym_procExternal; aux_sym_declVar_repeat2]; ACTIONS 4969 [ts_builtin_sym_end];
   ACTIONS 13979 [anon_sym_LBRACK]; ACTIONS 4969 [aux_sym_ppUsesBlock_token1];
   ACTIONS 3 [sym__space]; ACTIONS 5 [sym_ppDirective]; ACTIONS 3 [sym_comment];
   ACTIONS 4969 [sym_identifier]; ACTIONS 4976 [sym_kDefault; sym_kNodefault];
   ACTIONS 4979 [sym_kDispId]; ACTIONS 4969 [sym_kGeneric; sym_kOperator];
   ACTIONS 4982 [sym_kPublic]; ACTIONS 4976 [sym_kStatic; sym_kVirtual; sym_kAbstract;
   sym_kDynamic; sym_kOverride; sym_kOverload; sym_kReintroduce; sym_kStdcall; sym_kCdecl;
   sym_kCppdecl; sym_kPascal; sym_kRegister; sym_kMwpascal]; ACTIONS 13860 [sym_kExternal];
   ACTIONS 4985 [sym_kMessage]; ACTIONS 4988 [sym_kDeprecated]; ACTIONS 4976 [sym_kExperimental;
   sym_kPlatform; sym_kUnimplemented; sym_kCvar]; ACTIONS 4991 [sym_kExport];
   ACTIONS 4976 [sym_kFar; sym_kNear; sym_kSafecall; sym_kAssembler; sym_kNostackframe;
   sym_kInterrupt; sym_kNoreturn; sym_kIocheck; sym_kLocal; sym_kHardfloat; sym_kSoftfloat;
   sym_kMs_abi_default; sym_kMs_abi_cdecl; sym_kSaveregisters; sym_kSysv_abi_default;
   sym_kSysv_abi_cdecl; sym_kVectorcall; sym_kVarargs; sym_kWinapi]; ACTIONS 4994 [sym_kAlias];
   ACTIONS 4969 [sym_kBegin; sym_kClass; sym_kConst; sym_kConstructor; sym_kDestructor;
   sym_kExports; sym_kFunction]; ACTIONS 1016 [sym_kInline]; ACTIONS 4969 [sym_kLabel;
   sym_kProcedure; sym_kResourcestring; sym_kThreadvar; sym_kType; sym_kUses; sym_kVar]].

(** State 2241. *)
Definition ts_parse_table_2241 : parse_row :=
  [ACTIONS 10622 [anon_sym_LBRACK; aux_sym_ppUsesBlock_token1]; ACTIONS 3 [sym__space];
   ACTIONS 5 [sym_ppDirective]; ACTIONS 3 [sym_comment]; ACTIONS 10622 [sym_identifier;
   sym_kDefault; sym_kNodefault; sym_kDispId; sym_kGeneric; sym_kOperator; sym_kPublic;
   sym_kStatic; sym_kVirtual; sym_kAbstract; sym_kDynamic; sym_kOverride; sym_kOverload;
   sym_kReintroduce; sym_kStdcall; sym_kCdecl; sym_kCppdecl; sym_kPascal; sym_kRegister;
   sym_kMwpascal; sym_kExternal; sym_kMessage; sym_kDeprecated; sym_kExperimental; sym_kPlatform;
   sym_kUnimplemented; sym_kCvar; sym_kExport; sym_kFar; sym_kNear; sym_kSafecall;
   sym_kAssembler; sym_kNostackframe; sym_kInterrupt; sym_kNoreturn; sym_kIocheck; sym_kLocal;
   sym_kHardfloat; sym_kSoftfloat; sym_kMs_abi_default; sym_kMs_abi_cdecl; sym_kSaveregisters;
   sym_kSysv_abi_default; sym_kSysv_abi_cdecl; sym_kVectorcall; sym_kVarargs; sym_kWinapi;
   sym_kAlias; sym_kClass; sym_kConst; sym_kConstructor; sym_kDestructor; sym_kEnd; sym_kExports;
   sym_kFinalization; sym_kFunction; sym_kImplementation; sym_kInitialization; sym_kInline;
   sym_kInterface; sym_kLabel; sym_kProcedure; sym_kProperty; sym_kResourcestring;
   sym_kThreadvar; sym_kType; sym_kUses; sym_kVar]].

(** State 2242. *)
Definition ts_parse_table_2242 : parse_row :=
  [STATE 2633 [sym__procAttribute]; STATE 14888 [sym_procAttribute];
   STATE 2287 [sym_procExternal; aux_sym_declVar_repeat2]; ACTIONS 5797 [ts_builtin_sym_end];
   ACTIONS 13982 [anon_sym_LBRACK]; ACTIONS 5797 [aux_sym_ppUsesBlock_token1];
   ACTIONS 3 [sym__space]; ACTIONS 5 [sym_ppDirective]; ACTIONS 3 [sym_comment];
   ACTIONS 5797 [sym_identifier]; ACTIONS 5804 [sym_kDefault; sym_kNodefault];
   ACTIONS 5807 [sym_kDispId]; ACTIONS 5797 [sym_kGeneric; sym_kOperator];
   ACTIONS 5810 [sym_kPublic]; ACTIONS 5804 [sym_kStatic; sym_kVirtual; sym_kAbstract;
   sym_kDynamic; sym_kOverride; sym_kOverload; sym_kReintroduce; sym_kStdcall; sym_kCdecl;
   sym_kCppdecl; sym_kPascal; sym_kRegister; sym_kMwpascal]; ACTIONS 13860 [sym_kExternal];
   ACTIONS 5813 [sym_kMessage]; ACTIONS 5816 [sym_kDeprecated]; ACTIONS 5804 [sym_kExperimental;
   sym_kPlatform; sym_kUnimplemented; sym_kCvar]; ACTIONS 5819 [sym_kExport];
   ACTIONS 5804 [sym_kFar; sym_kNear; sym_kSafecall; sym_kAssembler; sym_kNostackframe;
   sym_kInterrupt; sym_kNoreturn; sym_kIocheck; sym_kLocal; sym_kHardfloat; sym_kSoftfloat;
   sym_kMs_abi_default; sym_kMs_abi_cdecl; sym_kSaveregisters; sym_kSysv_abi_default;
   sym_kSysv_abi_cdecl; sym_kVectorcall; sym_kVarargs; sym_kWinapi]; ACTIONS 5822 [sym_kAlias];
   ACTIONS 5797 [sym_kBegin; sym_kClass; sym_kConst; sym_kConstructor; sym_kDestructor;
   sym_kExports; sym_kFunction]; ACTIONS 1016 [sym_kInline]; ACTIONS 5797 [sym_kLabel;
   sym_kProcedure; sym_kResourcestring; sym_kThreadvar; sym_kType; sym_kUses; sym_kVar]].

(** State 2243. *)
Definition ts_parse_table_2243 : parse_row :=
  [STATE 2633 [sym__procAttribute]; STATE 14888 [sym_procAttribute];
   STATE 2262 [sym_procExternal; aux_sym_declVar_repeat2]; ACTIONS 5221 [ts_builtin_sym_end];
   ACTIONS 13985 [anon_sym_LBRACK]; ACTIONS 5221 [aux_sym_ppUsesBlock_token1];
   ACTIONS 3 [sym__space]; ACTIONS 5 [sym_ppDirective]; ACTIONS 3 [sym_comment];
   ACTIONS 5221 [sym_identifier]; ACTIONS 5228 [sym_kDefault; sym_kNodefault];
   ACTIONS 5231 [sym_kDispId]; ACTIONS 5221 [sym_kGeneric; sym_kOperator];
   ACTIONS 5234 [sym_kPublic]; ACTIONS 5228 [sym_kStatic; sym_kVirtual; sym_kAbstract;
   sym_kDynamic; sym_kOverride; sym_kOverload; sym_kReintroduce; sym_kStdcall; sym_kCdecl;
   sym_kCppdecl; sym_kPascal; sym_kRegister; sym_kMwpascal]; ACTIONS 13860 [sym_kExternal];
   ACTIONS 5237 [sym_kMessage]; ACTIONS 5240 [sym_kDeprecated]; ACTIONS 5228 [sym_kExperimental;
   sym_kPlatform; sym_kUnimplemented; sym_kCvar]; ACTIONS 5243 [sym_kExport];
   ACTIONS 5228 [sym_kFar; sym_kNear; sym_kSafecall; sym_kAssembler; sym_kNostackframe;
   sym_kInterrupt; sym_kNoreturn; sym_kIocheck; sym_kLocal; sym_kHardfloat; sym_kSoftfloat;
   sym_kMs_abi_default; sym_kMs_abi_cdecl; sym_kSaveregisters; sym_kSysv_abi_default;
   sym_kSysv_abi_cdecl; sym_kVectorcall; sym_kVarargs; sym_kWinapi]; ACTIONS 5246 [sym_kAlias];
   ACTIONS 5221 [sym_kBegin; sym_kClass; sym_kConst; sym_kConstructor; sym_kDestructor;
   sym_kExports; sym_kFunction]; ACTIONS 1016 [sym_kInline]; ACTIONS 5221 [sym_kLabel;
   sym_kProcedure; sym_kResourcestring; sym_kThreadvar; sym_kType; sym_kUses; sym_kVar]].

(** State 2244. *)
Definition ts_parse_table_2244 : parse_row :=
  [ACTIONS 10634 [anon_sym_LBRACK; aux_sym_ppUsesBlock_token1]; ACTIONS 3 [sym__space];
   ACTIONS 5 [sym_ppDirective]; ACTIONS 3 [sym_comment]; ACTIONS 10634 [sym_identifier;
   sym_kDefault; sym_kNodefault; sym_kDispId; sym_kGeneric; sym_kOperator; sym_kPublic;
   sym_kStatic; sym_kVirtual; sym_kAbstract; sym_kDynamic; sym_kOverride; sym_kOverload;
   sym_kReintroduce; sym_kStdcall; sym_kCdecl; sym_kCppdecl; sym_kPascal; sym_kRegister;
   sym_kMwpascal; sym_kExternal; sym_kMessage; sym_kDeprecated; sym_kExperimental; sym_kPlatform;
   sym_kUnimplemented; sym_kCvar; sym_kExport; sym_kFar; sym_kNear; sym_kSafecall;
   sym_kAssembler; sym_kNostackframe; sym_kInterrupt; sym_kNoreturn; sym_kIocheck; sym_kLocal;
   sym_kHardfloat; sym_kSoftfloat; sym_kMs_abi_default; sym_kMs_abi_cdecl; sym_kSaveregisters;
   sym_kSysv_abi_default; sym_kSysv_abi_cdecl; sym_kVectorcall; sym_kVarargs; sym_kWinapi;
   sym_kAlias; sym_kBegin; sym_kClass; sym_kConst; sym_kConstructor; sym_kDestructor; sym_kEnd;
   sym_kExports; sym_kFinalization; sym_kFunction; sym_kImplementation; sym_kInitialization;
   sym_kInline; sym_kInterface; sym_kLabel; sym_kProcedure; sym_kResourcestring; sym_kThreadvar;
   sym_kType; sym_kUses; sym_kVar]].

(** State 2245. *)
Definition ts_parse_table_2245 : parse_row :=
  [ACTIONS 10630 [anon_sym_LBRACK; aux_sym_ppUsesBlock_token1]; ACTIONS 3 [sym__space];
   ACTIONS 5 [sym_ppDirective]; ACTIONS 3 [sym_comment]; ACTIONS 10630 [sym_identifier;
   sym_kDefault; sym_kNodefault; sym_kDispId; sym_kGeneric; sym_kOperator; sym_kPublic;
   sym_kStatic; sym_kVirtual; sym_kAbstract; sym_kDynamic; sym_kOverride; sym_kOverload;
   sym_kReintroduce; sym_kStdcall; sym_kCdecl; sym_kCppdecl; sym_kPascal; sym_kRegister;
   sym_kMwpascal; sym_kExternal; sym_kMessage; sym_kDeprecated; sym_kExperimental; sym_kPlatform;
   sym_kUnimplemented; sym_kCvar; sym_kExport; sym_kFar; sym_kNear; sym_kSafecall;
   sym_kAssembler; sym_kNostackframe; sym_kInterrupt; sym_kNoreturn; sym_kIocheck; sym_kLocal;
   sym_kHardfloat; sym_kSoftfloat; sym_kMs_abi_default; sym_kMs_abi_cdecl; sym_kSaveregisters;
   sym_kSysv_abi_default; sym_kSysv_abi_cdecl; sym_kVectorcall; sym_kVarargs; sym_kWinapi;
   sym_kAlias; sym_kClass; sym_kConst; sym_kConstructor; sym_kDestructor; sym_kEnd; sym_kExports;
   sym_kFinalization; sym_kFunction; sym_kImplementation; sym_kInitialization; sym_kInline;
   sym_kInterface; sym_kLabel; sym_kProcedure; sym_kProperty; sym_kResourcestring;
   sym_kThreadvar; sym_kType; sym_kUses; sym_kVar]].

(** State 2246. *)
Definition ts_parse_table_2246 : parse_row :=
  [ACTIONS 10638 [anon_sym_LBRACK; aux_sym_ppUsesBlock_token1]; ACTIONS 3 [sym__space];
   ACTIONS 5 [sym_ppDirective]; ACTIONS 3 [sym_comment]; ACTIONS 10638 [sym_identifier;
   sym_kDefault; sym_kNodefault; sym_kDispId; sym_kGeneric; sym_kOperator; sym_kPublic;
   sym_kStatic; sym_kVirtual; sym_kAbstract; sym_kDynamic; sym_kOverride; sym_kOverload;
   sym_kReintroduce; sym_kStdcall; sym_kCdecl; sym_kCppdecl; sym_kPascal; sym_kRegister;
   sym_kMwpascal; sym_kExternal; sym_kMessage; sym_kDeprecated; sym_kExperimental; sym_kPlatform;
   sym_kUnimplemented; sym_kCvar; sym_kExport; sym_kFar; sym_kNear; sym_kSafecall;
   sym_kAssembler; sym_kNostackframe; sym_kInterrupt; sym_kNoreturn; sym_kIocheck; sym_kLocal;
   sym_kHardfloat; sym_kSoftfloat; sym_kMs_abi_default; sym_kMs_abi_cdecl; sym_kSaveregisters;
   sym_kSysv_abi_default; sym_kSysv_abi_cdecl; sym_kVectorcall; sym_kVarargs; sym_kWinapi;
   sym_kAlias; sym_kBegin; sym_kClass; sym_kConst; sym_kConstructor; sym_kDestructor; sym_kEnd;
   sym_kExports; sym_kFinalization; sym_kFunction; sym_kImplementation; sym_kInitialization;
   sym_kInline; sym_kInterface; sym_kLabel; sym_kProcedure; sym_kResourcestring; sym_kThreadvar;
   sym_kType; sym_kUses; sym_kVar]].

(** State 2247. *)
Definition ts_parse_table_2247 : parse_row :=
  [ACTIONS 9810 [anon_sym_LBRACK; aux_sym_ppUsesBlock_token1]; ACTIONS 3 [sym__space];
   ACTIONS 5 [sym_ppDirective]; ACTIONS 3 [sym_comment]; ACTIONS 9810 [sym_kDefault;
   sym_kNodefault; sym_kDispId; sym_kGeneric; sym_kOperator; sym_kPublic; sym_kForward;
   sym_kStatic; sym_kVirtual; sym_kAbstract; sym_kDynamic; sym_kOverride; sym_kOverload;
   sym_kReintroduce; sym_kStdcall; sym_kCdecl; sym_kCppdecl; sym_kPascal; sym_kRegister;
   sym_kMwpascal; sym_kExternal; sym_kMessage; sym_kDeprecated; sym_kExperimental; sym_kPlatform;
   sym_kUnimplemented; sym_kCvar; sym_kExport; sym_kFar; sym_kNear; sym_kSafecall;
   sym_kAssembler; sym_kNostackframe; sym_kInterrupt; sym_kNoreturn; sym_kIocheck; sym_kLocal;
   sym_kHardfloat; sym_kSoftfloat; sym_kMs_abi_default; sym_kMs_abi_cdecl; sym_kSaveregisters;
   sym_kSysv_abi_default; sym_kSysv_abi_cdecl; sym_kVectorcall; sym_kVarargs; sym_kWinapi;
   sym_kAlias; sym_kClass; sym_kConst; sym_kConstructor; sym_kDestructor; sym_kEnd; sym_kExports;
   sym_kFinalization; sym_kFunction; sym_kImplementation; sym_kInitialization; sym_kInline;
   sym_kInterface; sym_kLabel; sym_kProcedure; sym_kProperty; sym_kResourcestring;
   sym_kThreadvar; sym_kType; sym_kUses; sym_kVar]].

(** State 2248. *)
Definition ts_parse_table_2248 : parse_row :=
  [STATE 2630 [sym__procAttribute]; STATE 14946 [sym_procAttribute];
   STATE 2316 [sym_procExternal; aux_sym_declVar_repeat2]; ACTIONS 13988 [anon_sym_LBRACK];
   ACTIONS 6525 [aux_sym_ppUsesBlock_token1]; ACTIONS 3 [sym__space];
   ACTIONS 5 [sym_ppDirective]; ACTIONS 3 [sym_comment]; ACTIONS 6525 [sym_identifier];
   ACTIONS 6532 [sym_kDefault; sym_kNodefault]; ACTIONS 6535 [sym_kDispId];
   ACTIONS 6525 [sym_kGeneric; sym_kOperator]; ACTIONS 6538 [sym_kPublic];
   ACTIONS 6532 [sym_kStatic; sym_kVirtual; sym_kAbstract; sym_kDynamic; sym_kOverride;
   sym_kOverload; sym_kReintroduce; sym_kStdcall; sym_kCdecl; sym_kCppdecl; sym_kPascal;
   sym_kRegister; sym_kMwpascal]; ACTIONS 13801 [sym_kExternal]; ACTIONS 6541 [sym_kMessage];
   ACTIONS 6544 [sym_kDeprecated]; ACTIONS 6532 [sym_kExperimental; sym_kPlatform;
   sym_kUnimplemented; sym_kCvar]; ACTIONS 6547 [sym_kExport]; ACTIONS 6532 [sym_kFar; sym_kNear;
   sym_kSafecall; sym_kAssembler; sym_kNostackframe; sym_kInterrupt; sym_kNoreturn; sym_kIocheck;
   sym_kLocal; sym_kHardfloat; sym_kSoftfloat; sym_kMs_abi_default; sym_kMs_abi_cdecl;
   sym_kSaveregisters; sym_kSysv_abi_default; sym_kSysv_abi_cdecl; sym_kVectorcall; sym_kVarargs;
   sym_kWinapi]; ACTIONS 6550 [sym_kAlias]; ACTIONS 6525 [sym_kAsm; sym_kBegin; sym_kClass;
   sym_kConst; sym_kConstructor; sym_kDestructor; sym_kExports; sym_kFunction];
   ACTIONS 1016 [sym_kInline]; ACTIONS 6525 [sym_kLabel; sym_kProcedure; sym_kResourcestring;
   sym_kThreadvar; sym_kType; sym_kUses; sym_kVar]].

(** State 2249. *)
Definition ts_parse_table_2249 : parse_row :=
  [STATE 2630 [sym__procAttribute]; STATE 14946 [sym_procAttribute];
   STATE 2208 [sym_procExternal; aux_sym_declVar_repeat2]; ACTIONS 13991 [anon_sym_LBRACK];
   ACTIONS 5308 [aux_sym_ppUsesBlock_token1]; ACTIONS 3 [sym__space];
   ACTIONS 5 [sym_ppDirective]; ACTIONS 3 [sym_comment]; ACTIONS 5308 [sym_identifier];
   ACTIONS 5315 [sym_kDefault; sym_kNodefault]; ACTIONS 5318 [sym_kDispId];
   ACTIONS 5308 [sym_kGeneric; sym_kOperator]; ACTIONS 5321 [sym_kPublic];
   ACTIONS 5315 [sym_kStatic; sym_kVirtual; sym_kAbstract; sym_kDynamic; sym_kOverride;
   sym_kOverload; sym_kReintroduce; sym_kStdcall; sym_kCdecl; sym_kCppdecl; sym_kPascal;
   sym_kRegister; sym_kMwpascal]; ACTIONS 13801 [sym_kExternal]; ACTIONS 5324 [sym_kMessage];
   ACTIONS 5327 [sym_kDeprecated]; ACTIONS 5315 [sym_kExperimental; sym_kPlatform;
   sym_kUnimplemented; sym_kCvar]; ACTIONS 5330 [sym_kExport]; ACTIONS 5315 [sym_kFar; sym_kNear;
   sym_kSafecall; sym_kAssembler; sym_kNostackframe; sym_kInterrupt; sym_kNoreturn; sym_kIocheck;
   sym_kLocal; sym_kHardfloat; sym_kSoftfloat; sym_kMs_abi_default; sym_kMs_abi_cdecl;
   sym_kSaveregisters; sym_kSysv_abi_default; sym_kSysv_abi_cdecl; sym_kVectorcall; sym_kVarargs;
   sym_kWinapi]; ACTIONS 5333 [sym_kAlias]; ACTIONS 5308 [sym_kAsm; sym_kBegin; sym_kClass;
   sym_kConst; sym_kConstructor; sym_kDestructor; sym_kExports; sym_kFunction];
   ACTIONS 1016 [sym_kInline]; ACTIONS 5308 [sym_kLabel; sym_kProcedure; sym_kResourcestring;
   sym_kThreadvar; sym_kType; sym_kUses; sym_kVar]].

(** State 2250. *)
Definition ts_parse_table_2250 : parse_row :=
  [STATE 2630 [sym__procAttribute]; STATE 14946 [sym_procAttribute];
   STATE 2340 [sym_procExternal; aux_sym_declVar_repeat2]; ACTIONS 13994 [anon_sym_LBRACK];
   ACTIONS 6618 [aux_sym_ppUsesBlock_token1]; ACTIONS 3 [sym__space];
   ACTIONS 5 [sym_ppDirective]; ACTIONS 3 [sym_comment]; ACTIONS 6618 [sym_identifier];
   ACTIONS 6625 [sym_kDefault; sym_kNodefault]; ACTIONS 6628 [sym_kDispId];
   ACTIONS 6618 [sym_kGeneric; sym_kOperator]; ACTIONS 6631 [sym_kPublic];
   ACTIONS 6625 [sym_kStatic; sym_kVirtual; sym_kAbstract; sym_kDynamic; sym_kOverride;
   sym_kOverload; sym_kReintroduce; sym_kStdcall; sym_kCdecl; sym_kCppdecl; sym_kPascal;
   sym_kRegister; sym_kMwpascal]; ACTIONS 13801 [sym_kExternal]; ACTIONS 6634 [sym_kMessage];
   ACTIONS 6637 [sym_kDeprecated]; ACTIONS 6625 [sym_kExperimental; sym_kPlatform;
   sym_kUnimplemented; sym_kCvar]; ACTIONS 6640 [sym_kExport]; ACTIONS 6625 [sym_kFar; sym_kNear;
   sym_kSafecall; sym_kAssembler; sym_kNostackframe; sym_kInterrupt; sym_kNoreturn; sym_kIocheck;
   sym_kLocal; sym_kHardfloat; sym_kSoftfloat; sym_kMs_abi_default; sym_kMs_abi_cdecl;
   sym_kSaveregisters; sym_kSysv_abi_default; sym_kSysv_abi_cdecl; sym_kVectorcall; sym_kVarargs;
   sym_kWinapi]; ACTIONS 6643 [sym_kAlias]; ACTIONS 6618 [sym_kAsm; sym_kBegin; sym_kClass;
   sym_kConst; sym_kConstructor; sym_kDestructor; sym_kExports; sym_kFunction];
   ACTIONS 1016 [sym_kInline]; ACTIONS 6618 [sym_kLabel; sym_kProcedure; sym_kResourcestring;
   sym_kThreadvar; sym_kType; sym_kUses; sym_kVar]].

(** State 2251. *)
Definition ts_parse_table_2251 : parse_row :=
  [ACTIONS 10404 [anon_sym_LBRACK; aux_sym_ppUsesBlock_token1]; ACTIONS 3 [sym__space];
   ACTIONS 5 [sym_ppDirective]; ACTIONS 3 [sym_comment]; ACTIONS 10404 [sym_identifier;
   sym_kDefault; sym_kNodefault; sym_kDispId; sym_kGeneric; sym_kOperator; sym_kPublished;
   sym_kPublic; sym_kProtected; sym_kPrivate; sym_kStrict; sym_kRequired; sym_kOptional;
   sym_kStatic; sym_kVirtual; sym_kAbstract; sym_kDynamic; sym_kOverride; sym_kOverload;
   sym_kReintroduce; sym_kStdcall; sym_kCdecl; sym_kCppdecl; sym_kPascal; sym_kRegister;
   sym_kMwpascal; sym_kExternal; sym_kMessage; sym_kDeprecated; sym_kExperimental; sym_kPlatform;
   sym_kUnimplemented; sym_kCvar; sym_kExport; sym_kFar; sym_kNear; sym_kSafecall;
   sym_kAssembler; sym_kNostackframe; sym_kInterrupt; sym_kNoreturn; sym_kIocheck; sym_kLocal;
   sym_kHardfloat; sym_kSoftfloat; sym_kMs_abi_default; sym_kMs_abi_cdecl; sym_kSaveregisters;
   sym_kSysv_abi_default; sym_kSysv_abi_cdecl; sym_kVectorcall; sym_kVarargs; sym_kWinapi;
   sym_kAlias; sym_kCase; sym_kClass; sym_kConst; sym_kConstructor; sym_kDestructor; sym_kEnd;
   sym_kFunction; sym_kInline; sym_kProcedure; sym_kProperty; sym_kResourcestring;
   sym_kThreadvar; sym_kType; sym_kVar]].

(** State 2252. *)
Definition ts_parse_table_2252 : parse_row :=
  [STATE 2630 [sym__procAttribute]; STATE 14946 [sym_procAttribute];
   STATE 2317 [sym_procExternal; aux_sym_declVar_repeat2]; ACTIONS 13997 [anon_sym_LBRACK];
   ACTIONS 6677 [aux_sym_ppUsesBlock_token1]; ACTIONS 3 [sym__space];
   ACTIONS 5 [sym_ppDirective]; ACTIONS 3 [sym_comment]; ACTIONS 6677 [sym_identifier];
   ACTIONS 6684 [sym_kDefault; sym_kNodefault]; ACTIONS 6687 [sym_kDispId];
   ACTIONS 6677 [sym_kGeneric; sym_kOperator]; ACTIONS 6690 [sym_kPublic];
   ACTIONS 6684 [sym_kStatic; sym_kVirtual; sym_kAbstract; sym_kDynamic; sym_kOverride;
   sym_kOverload; sym_kReintroduce; sym_kStdcall; sym_kCdecl; sym_kCppdecl; sym_kPascal;
   sym_kRegister; sym_kMwpascal]; ACTIONS 13801 [sym_kExternal]; ACTIONS 6693 [sym_kMessage];
   ACTIONS 6696 [sym_kDeprecated]; ACTIONS 6684 [sym_kExperimental; sym_kPlatform;
   sym_kUnimplemented; sym_kCvar]; ACTIONS 6699 [sym_kExport]; ACTIONS 6684 [sym_kFar; sym_kNear;
   sym_kSafecall; sym_kAssembler; sym_kNostackframe; sym_kInterrupt; sym_kNoreturn; sym_kIocheck;
   sym_kLocal; sym_kHardfloat; sym_kSoftfloat; sym_kMs_abi_default; sym_kMs_abi_cdecl;
   sym_kSaveregisters; sym_kSysv_abi_default; sym_kSysv_abi_cdecl; sym_kVectorcall; sym_kVarargs;
   sym_kWinapi]; ACTIONS 6702 [sym_kAlias]; ACTIONS 6677 [sym_kAsm; sym_kBegin; sym_kClass;
   sym_kConst; sym_kConstructor; sym_kDestructor; sym_kExports; sym_kFunction];
   ACTIONS 1016 [sym_kInline]; ACTIONS 6677 [sym_kLabel; sym_kProcedure; sym_kResourcestring;
   sym_kThreadvar; sym_kType; sym_kUses; sym_kVar]].

(** State 2253. *)
Definition ts_parse_table_2253 : parse_row :=
  [STATE 2630 [sym__procAttribute]; STATE 14946 [sym_procAttribute];
   STATE 2340 [sym_procExternal; aux_sym_declVar_repeat2]; ACTIONS 14000 [anon_sym_LBRACK];
   ACTIONS 6736 [aux_sym_ppUsesBlock_token1]; ACTIONS 3 [sym__space];
   ACTIONS 5 [sym_ppDirective]; ACTIONS 3 [sym_comment]; ACTIONS 6736 [sym_identifier];
   ACTIONS 6743 [sym_kDefault; sym_kNodefault]; ACTIONS 6746 [sym_kDispId];
   ACTIONS 6736 [sym_kGeneric; sym_kOperator]; ACTIONS 6749 [sym_kPublic];
   ACTIONS 6743 [sym_kStatic; sym_kVirtual; sym_kAbstract; sym_kDynamic; sym_kOverride;
   sym_kOverload; sym_kReintroduce; sym_kStdcall; sym_kCdecl; sym_kCppdecl; sym_kPascal;
   sym_kRegister; sym_kMwpascal]; ACTIONS 13801 [sym_kExternal]; ACTIONS 6752 [sym_kMessage];
   ACTIONS 6755 [sym_kDeprecated]; ACTIONS 6743 [sym_kExperimental; sym_kPlatform;
   sym_kUnimplemented; sym_kCvar]; ACTIONS 6758 [sym_kExport]; ACTIONS 6743 [sym_kFar; sym_kNear;
   sym_kSafecall; sym_kAssembler; sym_kNostackframe; sym_kInterrupt; sym_kNoreturn; sym_kIocheck;
   sym_kLocal; sym_kHardfloat; sym_kSoftfloat; sym_kMs_abi_default; sym_kMs_abi_cdecl;
   sym_kSaveregisters; sym_kSysv_abi_default; sym_kSysv_abi_cdecl; sym_kVectorcall; sym_kVarargs;
   sym_kWinapi]; ACTIONS 6761 [sym_kAlias]; ACTIONS 6736 [sym_kAsm; sym_kBegin; sym_kClass;
   sym_kConst; sym_kConstructor; sym_kDestructor; sym_kExports; sym_kFunction];
   ACTIONS 1016 [sym_kInline]; ACTIONS 6736 [sym_kLabel; sym_kProcedure; sym_kResourcestring;
   sym_kThreadvar; sym_kType; sym_kUses; sym_kVar]].

(** State 2254. *)
Definition ts_parse_table_2254 : parse_row :=
  [STATE 2630 [sym__procAttribute]; STATE 14946 [sym_procAttribute];
   STATE 2340 [sym_procExternal; aux_sym_declVar_repeat2]; ACTIONS 14003 [anon_sym_LBRACK];
   ACTIONS 6767 [aux_sym_ppUsesBlock_token1]; ACTIONS 3 [sym__space];
   ACTIONS 5 [sym_ppDirective]; ACTIONS 3 [sym_comment]; ACTIONS 6767 [sym_identifier];
   ACTIONS 6774 [sym_kDefault; sym_kNodefault]; ACTIONS 6777 [sym_kDispId];
   ACTIONS 6767 [sym_kGeneric; sym_kOperator]; ACTIONS 6780 [sym_kPublic];
   ACTIONS 6774 [sym_kStatic; sym_kVirtual; sym_kAbstract; sym_kDynamic; sym_kOverride;
   sym_kOverload; sym_kReintroduce; sym_kStdcall; sym_kCdecl; sym_kCppdecl; sym_kPascal;
   sym_kRegister; sym_kMwpascal]; ACTIONS 13801 [sym_kExternal]; ACTIONS 6783 [sym_kMessage];
   ACTIONS 6786 [sym_kDeprecated]; ACTIONS 6774 [sym_kExperimental; sym_kPlatform;
   sym_kUnimplemented; sym_kCvar]; ACTIONS 6789 [sym_kExport]; ACTIONS 6774 [sym_kFar; sym_kNear;
   sym_kSafecall; sym_kAssembler; sym_kNostackframe; sym_kInterrupt; sym_kNoreturn; sym_kIocheck;
   sym_kLocal; sym_kHardfloat; sym_kSoftfloat; sym_kMs_abi_default; sym_kMs_abi_cdecl;
   sym_kSaveregisters; sym_kSysv_abi_default; sym_kSysv_abi_cdecl; sym_kVectorcall; sym_kVarargs;
   sym_kWinapi]; ACTIONS 6792 [sym_kAlias]; ACTIONS 6767 [sym_kAsm; sym_kBegin; sym_kClass;
   sym_kConst; sym_kConstructor; sym_kDestructor; sym_kExports; sym_kFunction];
   ACTIONS 1016 [sym_kInline]; ACTIONS 6767 [sym_kLabel; sym_kProcedure; sym_kResourcestring;
   sym_kThreadvar; sym_kType; sym_kUses; sym_kVar]].

(** State 2255. *)
Definition ts_parse_table_2255 : parse_row :=
  [STATE 2633 [sym__procAttribute]; STATE 14888 [sym_procAttribute];
   STATE 2287 [sym_procExternal; aux_sym_declVar_repeat2]; ACTIONS 4674 [ts_builtin_sym_end];
   ACTIONS 14006 [anon_sym_LBRACK]; ACTIONS 4674 [aux_sym_ppUsesBlock_token1];
   ACTIONS 3 [sym__space]; ACTIONS 5 [sym_ppDirective]; ACTIONS 3 [sym_comment];
   ACTIONS 4674 [sym_identifier]; ACTIONS 4681 [sym_kDefault; sym_kNodefault];
   ACTIONS 4684 [sym_kDispId]; ACTIONS 4674 [sym_kGeneric; sym_kOperator];
   ACTIONS 4687 [sym_kPublic]; ACTIONS 4681 [sym_kStatic; sym_kVirtual; sym_kAbstract;
   sym_kDynamic; sym_kOverride; sym_kOverload; sym_kReintroduce; sym_kStdcall; sym_kCdecl;
   sym_kCppdecl; sym_kPascal; sym_kRegister; sym_kMwpascal]; ACTIONS 13860 [sym_kExternal];
   ACTIONS 4690 [sym_kMessage]; ACTIONS 4693 [sym_kDeprecated]; ACTIONS 4681 [sym_kExperimental;
   sym_kPlatform; sym_kUnimplemented; sym_kCvar]; ACTIONS 4696 [sym_kExport];
   ACTIONS 4681 [sym_kFar; sym_kNear; sym_kSafecall; sym_kAssembler; sym_kNostackframe;
   sym_kInterrupt; sym_kNoreturn; sym_kIocheck; sym_kLocal; sym_kHardfloat; sym_kSoftfloat;
   sym_kMs_abi_default; sym_kMs_abi_cdecl; sym_kSaveregisters; sym_kSysv_abi_default;
   sym_kSysv_abi_cdecl; sym_kVectorcall; sym_kVarargs; sym_kWinapi]; ACTIONS 4699 [sym_kAlias];
   ACTIONS 4674 [sym_kBegin; sym_kClass; sym_kConst; sym_kConstructor; sym_kDestructor;
   sym_kExports; sym_kFunction]; ACTIONS 1016 [sym_kInline]; ACTIONS 4674 [sym_kLabel;
   sym_kProcedure; sym_kResourcestring; sym_kThreadvar; sym_kType; sym_kUses; sym_kVar]].

(** State 2256. *)
Definition ts_parse_table_2256 : parse_row :=
  [STATE 2633 [sym__procAttribute]; STATE 14888 [sym_procAttribute];
   STATE 2287 [sym_procExternal; aux_sym_declVar_repeat2]; ACTIONS 4733 [ts_builtin_sym_end];
   ACTIONS 14009 [anon_sym_LBRACK]; ACTIONS 4733 [aux_sym_ppUsesBlock_token1];
   ACTIONS 3 [sym__space]; ACTIONS 5 [sym_ppDirective]; ACTIONS 3 [sym_comment];
   ACTIONS 4733 [sym_identifier]; ACTIONS 4740 [sym_kDefault; sym_kNodefault];
   ACTIONS 4743 [sym_kDispId]; ACTIONS 4733 [sym_kGeneric; sym_kOperator];
   ACTIONS 4746 [sym_kPublic]; ACTIONS 4740 [sym_kStatic; sym_kVirtual; sym_kAbstract;
   sym_kDynamic; sym_kOverride; sym_kOverload; sym_kReintroduce; sym_kStdcall; sym_kCdecl;
   sym_kCppdecl; sym_kPascal; sym_kRegister; sym_kMwpascal]; ACTIONS 13860 [sym_kExternal];
   ACTIONS 4749 [sym_kMessage]; ACTIONS 4752 [sym_kDeprecated]; ACTIONS 4740 [sym_kExperimental;
   sym_kPlatform; sym_kUnimplemented; sym_kCvar]; ACTIONS 4755 [sym_kExport];
   ACTIONS 4740 [sym_kFar; sym_kNear; sym_kSafecall; sym_kAssembler; sym_kNostackframe;
   sym_kInterrupt; sym_kNoreturn; sym_kIocheck; sym_kLocal; sym_kHardfloat; sym_kSoftfloat;
   sym_kMs_abi_default; sym_kMs_abi_cdecl; sym_kSaveregisters; sym_kSysv_abi_default;
   sym_kSysv_abi_cdecl; sym_kVectorcall; sym_kVarargs; sym_kWinapi]; ACTIONS 4758 [sym_kAlias];
   ACTIONS 4733 [sym_kBegin; sym_kClass; sym_kConst; sym_kConstructor; sym_kDestructor;
   sym_kExports; sym_kFunction]; ACTIONS 1016 [sym_kInline]; ACTIONS 4733 [sym_kLabel;
   sym_kProcedure; sym_kResourcestring; sym_kThreadvar; sym_kType; sym_kUses; sym_kVar]].

(** State 2257. *)
Definition ts_parse_table_2257 : parse_row :=
  [STATE 2633 [sym__procAttribute]; STATE 14888 [sym_procAttribute];
   STATE 2285 [sym_procExternal; aux_sym_declVar_repeat2]; ACTIONS 4851 [ts_builtin_sym_end];
   ACTIONS 14012 [anon_sym_LBRACK]; ACTIONS 4851 [aux_sym_ppUsesBlock_token1];
   ACTIONS 3 [sym__space]; ACTIONS 5 [sym_ppDirective]; ACTIONS 3 [sym_comment];
   ACTIONS 4851 [sym_identifier]; ACTIONS 4858 [sym_kDefault; sym_kNodefault];
   ACTIONS 4861 [sym_kDispId]; ACTIONS 4851 [sym_kGeneric; sym_kOperator];
   ACTIONS 4864 [sym_kPublic]; ACTIONS 4858 [sym_kStatic; sym_kVirtual; sym_kAbstract;
   sym_kDynamic; sym_kOverride; sym_kOverload; sym_kReintroduce; sym_kStdcall; sym_kCdecl;
   sym_kCppdecl; sym_kPascal; sym_kRegister; sym_kMwpascal]; ACTIONS 13860 [sym_kExternal];
   ACTIONS 4867 [sym_kMessage]; ACTIONS 4870 [sym_kDeprecated]; ACTIONS 4858 [sym_kExperimental;
   sym_kPlatform; sym_kUnimplemented; sym_kCvar]; ACTIONS 4873 [sym_kExport];
   ACTIONS 4858 [sym_kFar; sym_kNear; sym_kSafecall; sym_kAssembler; sym_kNostackframe;
   sym_kInterrupt; sym_kNoreturn; sym_kIocheck; sym_kLocal; sym_kHardfloat; sym_kSoftfloat;
   sym_kMs_abi_default; sym_kMs_abi_cdecl; sym_kSaveregisters; sym_kSysv_abi_default;
   sym_kSysv_abi_cdecl; sym_kVectorcall; sym_kVarargs; sym_kWinapi]; ACTIONS 4876 [sym_kAlias];
   ACTIONS 4851 [sym_kBegin; sym_kClass; sym_kConst; sym_kConstructor; sym_kDestructor;
   sym_kExports; sym_kFunction]; ACTIONS 1016 [sym_kInline]; ACTIONS 4851 [sym_kLabel;
   sym_kProcedure; sym_kResourcestring; sym_kThreadvar; sym_kType; sym_kUses; sym_kVar]].

(** State 2258. *)
Definition ts_parse_table_2258 : parse_row :=
  [STATE 2633 [sym__procAttribute]; STATE 14888 [sym_procAttribute];
   STATE 2287 [sym_procExternal; aux_sym_declVar_repeat2]; ACTIONS 4907 [ts_builtin_sym_end];
   ACTIONS 14015 [anon_sym_LBRACK]; ACTIONS 4907 [aux_sym_ppUsesBlock_token1];
   ACTIONS 3 [sym__space]; ACTIONS 5 [sym_ppDirective]; ACTIONS 3 [sym_comment];
   ACTIONS 4907 [sym_identifier]; ACTIONS 4914 [sym_kDefault; sym_kNodefault];
   ACTIONS 4917 [sym_kDispId]; ACTIONS 4907 [sym_kGeneric; sym_kOperator];
   ACTIONS 4920 [sym_kPublic]; ACTIONS 4914 [sym_kStatic; sym_kVirtual; sym_kAbstract;
   sym_kDynamic; sym_kOverride; sym_kOverload; sym_kReintroduce; sym_kStdcall; sym_kCdecl;
   sym_kCppdecl; sym_kPascal; sym_kRegister; sym_kMwpascal]; ACTIONS 13860 [sym_kExternal];
   ACTIONS 4923 [sym_kMessage]; ACTIONS 4926 [sym_kDeprecated]; ACTIONS 4914 [sym_kExperimental;
   sym_kPlatform; sym_kUnimplemented; sym_kCvar]; ACTIONS 4929 [sym_kExport];
   ACTIONS 4914 [sym_kFar; sym_kNear; sym_kSafecall; sym_kAssembler; sym_kNostackframe;
   sym_kInterrupt; sym_kNoreturn; sym_kIocheck; sym_kLocal; sym_kHardfloat; sym_kSoftfloat;
   sym_kMs_abi_default; sym_kMs_abi_cdecl; sym_kSaveregisters; sym_kSysv_abi_default;
   sym_kSysv_abi_cdecl; sym_kVectorcall; sym_kVarargs; sym_kWinapi]; ACTIONS 4932 [sym_kAlias];
   ACTIONS 4907 [sym_kBegin; sym_kClass; sym_kConst; sym_kConstructor; sym_kDestructor;
   sym_kExports; sym_kFunction]; ACTIONS 1016 [sym_kInline]; ACTIONS 4907 [sym_kLabel;
   sym_kProcedure; sym_kResourcestring; sym_kThreadvar; sym_kType; sym_kUses; sym_kVar]].

(** State 2259. *)
Definition ts_parse_table_2259 : parse_row :=
  [ACTIONS 9822 [anon_sym_LBRACK; aux_sym_ppUsesBlock_token1]; ACTIONS 3 [sym__space];
   ACTIONS 5 [sym_ppDirective]; ACTIONS 3 [sym_comment]; ACTIONS 9822 [sym_kDefault;
   sym_kNodefault; sym_kDispId; sym_kGeneric; sym_kOperator; sym_kPublic; sym_kForward;
   sym_kStatic; sym_kVirtual; sym_kAbstract; sym_kDynamic; sym_kOverride; sym_kOverload;
   sym_kReintroduce; sym_kStdcall; sym_kCdecl; sym_kCppdecl; sym_kPascal; sym_kRegister;
   sym_kMwpascal; sym_kExternal; sym_kMessage; sym_kDeprecated; sym_kExperimental; sym_kPlatform;
   sym_kUnimplemented; sym_kCvar; sym_kExport; sym_kFar; sym_kNear; sym_kSafecall;
   sym_kAssembler; sym_kNostackframe; sym_kInterrupt; sym_kNoreturn; sym_kIocheck; sym_kLocal;
   sym_kHardfloat; sym_kSoftfloat; sym_kMs_abi_default; sym_kMs_abi_cdecl; sym_kSaveregisters;
   sym_kSysv_abi_default; sym_kSysv_abi_cdecl; sym_kVectorcall; sym_kVarargs; sym_kWinapi;
   sym_kAlias; sym_kClass; sym_kConst; sym_kConstructor; sym_kDestructor; sym_kEnd; sym_kExports;
   sym_kFinalization; sym_kFunction; sym_kImplementation; sym_kInitialization; sym_kInline;
   sym_kInterface; sym_kLabel; sym_kProcedure; sym_kProperty; sym_kResourcestring;
   sym_kThreadvar; sym_kType; sym_kUses; sym_kVar]].

(** State 2260. *)
Definition ts_parse_table_2260 : parse_row :=
  [ACTIONS 9858 [anon_sym_LBRACK; aux_sym_ppUsesBlock_token1]; ACTIONS 3 [sym__space];
   ACTIONS 5 [sym_ppDirective]; ACTIONS 3 [sym_comment]; ACTIONS 9858 [sym_kDefault;
   sym_kNodefault; sym_kDispId; sym_kGeneric; sym_kOperator; sym_kPublic; sym_kForward;
   sym_kStatic; sym_kVirtual; sym_kAbstract; sym_kDynamic; sym_kOverride; sym_kOverload;
   sym_kReintroduce; sym_kStdcall; sym_kCdecl; sym_kCppdecl; sym_kPascal; sym_kRegister;
   sym_kMwpascal; sym_kExternal; sym_kMessage; sym_kDeprecated; sym_kExperimental; sym_kPlatform;
   sym_kUnimplemented; sym_kCvar; sym_kExport; sym_kFar; sym_kNear; sym_kSafecall;
   sym_kAssembler; sym_kNostackframe; sym_kInterrupt; sym_kNoreturn; sym_kIocheck; sym_kLocal;
   sym_kHardfloat; sym_kSoftfloat; sym_kMs_abi_default; sym_kMs_abi_cdecl; sym_kSaveregisters;
   sym_kSysv_abi_default; sym_kSysv_abi_cdecl; sym_kVectorcall; sym_kVarargs; sym_kWinapi;
   sym_kAlias; sym_kClass; sym_kConst; sym_kConstructor; sym_kDestructor; sym_kEnd; sym_kExports;
   sym_kFinalization; sym_kFunction; sym_kImplementation; sym_kInitialization; sym_kInline;
   sym_kInterface; sym_kLabel; sym_kProcedure; sym_kProperty; sym_kResourcestring;
   sym_kThreadvar; sym_kType; sym_kUses; sym_kVar]].

(** State 2261. *)
Definition ts_parse_table_2261 : parse_row :=
  [STATE 2633 [sym__procAttribute]; STATE 14888 [sym_procAttribute];
   STATE 2286 [sym_procExternal; aux_sym_declVar_repeat2]; ACTIONS 5106 [ts_builtin_sym_end];
   ACTIONS 14018 [anon_sym_LBRACK]; ACTIONS 5106 [aux_sym_ppUsesBlock_token1];
   ACTIONS 3 [sym__space]; ACTIONS 5 [sym_ppDirective]; ACTIONS 3 [sym_comment];
   ACTIONS 5106 [sym_identifier]; ACTIONS 5113 [sym_kDefault; sym_kNodefault];
   ACTIONS 5116 [sym_kDispId]; ACTIONS 5106 [sym_kGeneric; sym_kOperator];
   ACTIONS 5119 [sym_kPublic]; ACTIONS 5113 [sym_kStatic; sym_kVirtual; sym_kAbstract;
   sym_kDynamic; sym_kOverride; sym_kOverload; sym_kReintroduce; sym_kStdcall; sym_kCdecl;
   sym_kCppdecl; sym_kPascal; sym_kRegister; sym_kMwpascal]; ACTIONS 13860 [sym_kExternal];
   ACTIONS 5122 [sym_kMessage]; ACTIONS 5125 [sym_kDeprecated]; ACTIONS 5113 [sym_kExperimental;
   sym_kPlatform; sym_kUnimplemented; sym_kCvar]; ACTIONS 5128 [sym_kExport];
   ACTIONS 5113 [sym_kFar; sym_kNear; sym_kSafecall; sym_kAssembler; sym_kNostackframe;
   sym_kInterrupt; sym_kNoreturn; sym_kIocheck; sym_kLocal; sym_kHardfloat; sym_kSoftfloat;
   sym_kMs_abi_default; sym_kMs_abi_cdecl; sym_kSaveregisters; sym_kSysv_abi_default;
   sym_kSysv_abi_cdecl; sym_kVectorcall; sym_kVarargs; sym_kWinapi]; ACTIONS 5131 [sym_kAlias];
   ACTIONS 5106 [sym_kBegin; sym_kClass; sym_kConst; sym_kConstructor; sym_kDestructor;
   sym_kExports; sym_kFunction]; ACTIONS 1016 [sym_kInline]; ACTIONS 5106 [sym_kLabel;
   sym_kProcedure; sym_kResourcestring; sym_kThreadvar; sym_kType; sym_kUses; sym_kVar]].

(** State 2262. *)
Definition ts_parse_table_2262 : parse_row :=
  [STATE 2633 [sym__procAttribute]; STATE 14888 [sym_procAttribute];
   STATE 2287 [sym_procExternal; aux_sym_declVar_repeat2]; ACTIONS 5134 [ts_builtin_sym_end];
   ACTIONS 14021 [anon_sym_LBRACK]; ACTIONS 5134 [aux_sym_ppUsesBlock_token1];
   ACTIONS 3 [sym__space]; ACTIONS 5 [sym_ppDirective]; ACTIONS 3 [sym_comment];
   ACTIONS 5134 [sym_identifier]; ACTIONS 5141 [sym_kDefault; sym_kNodefault];
   ACTIONS 5144 [sym_kDispId]; ACTIONS 5134 [sym_kGeneric; sym_kOperator];
   ACTIONS 5147 [sym_kPublic]; ACTIONS 5141 [sym_kStatic; sym_kVirtual; sym_kAbstract;
   sym_kDynamic; sym_kOverride; sym_kOverload; sym_kReintroduce; sym_kStdcall; sym_kCdecl;
   sym_kCppdecl; sym_kPascal; sym_kRegister; sym_kMwpascal]; ACTIONS 13860 [sym_kExternal];
   ACTIONS 5150 [sym_kMessage]; ACTIONS 5153 [sym_kDeprecated]; ACTIONS 5141 [sym_kExperimental;
   sym_kPlatform; sym_kUnimplemented; sym_kCvar]; ACTIONS 5156 [sym_kExport];
   ACTIONS 5141 [sym_kFar; sym_kNear; sym_kSafecall; sym_kAssembler; sym_kNostackframe;
   sym_kInterrupt; sym_kNoreturn; sym_kIocheck; sym_kLocal; sym_kHardfloat; sym_kSoftfloat;
   sym_kMs_abi_default; sym_kMs_abi_cdecl; sym_kSaveregisters; sym_kSysv_abi_default;
   sym_kSysv_abi_cdecl; sym_kVectorcall; sym_kVarargs; sym_kWinapi]; ACTIONS 5159 [sym_kAlias];
   ACTIONS 5134 [sym_kBegin; sym_kClass; sym_kConst; sym_kConstructor; sym_kDestructor;
   sym_kExports; sym_kFunction]; ACTIONS 1016 [sym_kInline]; ACTIONS 5134 [sym_kLabel;
   sym_kProcedure; sym_kResourcestring; sym_kThreadvar; sym_kType; sym_kUses; sym_kVar]].

(** State 2263. *)
Definition ts_parse_table_2263 : parse_row :=
  [STATE 2633 [sym__procAttribute]; STATE 14888 [sym_procAttribute];
   STATE 2287 [sym_procExternal; aux_sym_declVar_repeat2]; ACTIONS 5162 [ts_builtin_sym_end];
   ACTIONS 14024 [anon_sym_LBRACK]; ACTIONS 5162 [aux_sym_ppUsesBlock_token1];
   ACTIONS 3 [sym__space]; ACTIONS 5 [sym_ppDirective]; ACTIONS 3 [sym_comment];
   ACTIONS 5162 [sym_identifier]; ACTIONS 5169 [sym_kDefault; sym_kNodefault];
   ACTIONS 5172 [sym_kDispId]; ACTIONS 5162 [sym_kGeneric; sym_kOperator];
   ACTIONS 5175 [sym_kPublic]; ACTIONS 5169 [sym_kStatic; sym_kVirtual; sym_kAbstract;
   sym_kDynamic; sym_kOverride; sym_kOverload; sym_kReintroduce; sym_kStdcall; sym_kCdecl;
   sym_kCppdecl; sym_kPascal; sym_kRegister; sym_kMwpascal]; ACTIONS 13860 [sym_kExternal];
   ACTIONS 5178 [sym_kMessage]; ACTIONS 5181 [sym_kDeprecated]; ACTIONS 5169 [sym_kExperimental;
   sym_kPlatform; sym_kUnimplemented; sym_kCvar]; ACTIONS 5184 [sym_kExport];
   ACTIONS 5169 [sym_kFar; sym_kNear; sym_kSafecall; sym_kAssembler; sym_kNostackframe;
   sym_kInterrupt; sym_kNoreturn; sym_kIocheck; sym_kLocal; sym_kHardfloat; sym_kSoftfloat;
   sym_kMs_abi_default; sym_kMs_abi_cdecl; sym_kSaveregisters; sym_kSysv_abi_default;
   sym_kSysv_abi_cdecl; sym_kVectorcall; sym_kVarargs; sym_kWinapi]; ACTIONS 5187 [sym_kAlias];
   ACTIONS 5162 [sym_kBegin; sym_kClass; sym_kConst; sym_kConstructor; sym_kDestructor;
   sym_kExports; sym_kFunction]; ACTIONS 1016 [sym_kInline]; ACTIONS 5162 [sym_kLabel;
   sym_kProcedure; sym_kResourcestring; sym_kThreadvar; sym_kType; sym_kUses; sym_kVar]].

(** State 2264. *)
Definition ts_parse_table_2264 : parse_row :=
  [STATE 2630 [sym__procAttribute]; STATE 14946 [sym_procAttribute];
   STATE 2320 [sym_procExternal; aux_sym_declVar_repeat2]; ACTIONS 14027 [anon_sym_LBRACK];
   ACTIONS 6823 [aux_sym_ppUsesBlock_token1]; ACTIONS 3 [sym__space];
   ACTIONS 5 [sym_ppDirective]; ACTIONS 3 [sym_comment]; ACTIONS 6823 [sym_identifier];
   ACTIONS 6830 [sym_kDefault; sym_kNodefault]; ACTIONS 6833 [sym_kDispId];
   ACTIONS 6823 [sym_kGeneric; sym_kOperator]; ACTIONS 6836 [sym_kPublic];
   ACTIONS 6830 [sym_kStatic; sym_kVirtual; sym_kAbstract; sym_kDynamic; sym_kOverride;
   sym_kOverload; sym_kReintroduce; sym_kStdcall; sym_kCdecl; sym_kCppdecl; sym_kPascal;
   sym_kRegister; sym_kMwpascal]; ACTIONS 13801 [sym_kExternal]; ACTIONS 6839 [sym_kMessage];
   ACTIONS 6842 [sym_kDeprecated]; ACTIONS 6830 [sym_kExperimental; sym_kPlatform;
   sym_kUnimplemented; sym_kCvar]; ACTIONS 6845 [sym_kExport]; ACTIONS 6830 [sym_kFar; sym_kNear;
   sym_kSafecall; sym_kAssembler; sym_kNostackframe; sym_kInterrupt; sym_kNoreturn; sym_kIocheck;
   sym_kLocal; sym_kHardfloat; sym_kSoftfloat; sym_kMs_abi_default; sym_kMs_abi_cdecl;
   sym_kSaveregisters; sym_kSysv_abi_default; sym_kSysv_abi_cdecl; sym_kVectorcall; sym_kVarargs;
   sym_kWinapi]; ACTIONS 6848 [sym_kAlias]; ACTIONS 6823 [sym_kAsm; sym_kBegin; sym_kClass;
   sym_kConst; sym_kConstructor; sym_kDestructor; sym_kExports; sym_kFunction];
   ACTIONS 1016 [sym_kInline]; ACTIONS 6823 [sym_kLabel; sym_kProcedure; sym_kResourcestring;
   sym_kThreadvar; sym_kType; sym_kUses; sym_kVar]].

(** State 2265. *)
Definition ts_parse_table_2265 : parse_row :=
  [ACTIONS 10404 [anon_sym_LBRACK; aux_sym_ppUsesBlock_token1]; ACTIONS 3 [sym__space];
   ACTIONS 5 [sym_ppDirective]; ACTIONS 3 [sym_comment]; ACTIONS 10404 [sym_identifier;
   sym_kDefault; sym_kNodefault; sym_kDispId; sym_kGeneric; sym_kOperator; sym_kPublic;
   sym_kStatic; sym_kVirtual; sym_kAbstract; sym_kDynamic; sym_kOverride; sym_kOverload;
   sym_kReintroduce; sym_kStdcall; sym_kCdecl; sym_kCppdecl; sym_kPascal; sym_kRegister;
   sym_kMwpascal; sym_kExternal; sym_kMessage; sym_kDeprecated; sym_kExperimental; sym_kPlatform;
   sym_kUnimplemented; sym_kCvar; sym_kExport; sym_kFar; sym_kNear; sym_kSafecall;
   sym_kAssembler; sym_kNostackframe; sym_kInterrupt; sym_kNoreturn; sym_kIocheck; sym_kLocal;
   sym_kHardfloat; sym_kSoftfloat; sym_kMs_abi_default; sym_kMs_abi_cdecl; sym_kSaveregisters;
   sym_kSysv_abi_default; sym_kSysv_abi_cdecl; sym_kVectorcall; sym_kVarargs; sym_kWinapi;
   sym_kAlias; sym_kClass; sym_kConst; sym_kConstructor; sym_kDestructor; sym_kEnd; sym_kExports;
   sym_kFinalization; sym_kFunction; sym_kImplementation; sym_kInitialization; sym_kInline;
   sym_kInterface; sym_kLabel; sym_kProcedure; sym_kProperty; sym_kResourcestring;
   sym_kThreadvar; sym_kType; sym_kUses; sym_kVar]].

(** State 2266. *)
Definition ts_parse_table_2266 : parse_row :=
  [STATE 2633 [sym__procAttribute]; STATE 14888 [sym_procAttribute];
   STATE 2287 [sym_procExternal; aux_sym_declVar_repeat2]; ACTIONS 5249 [ts_builtin_sym_end];
   ACTIONS 14030 [anon_sym_LBRACK]; ACTIONS 5249 [aux_sym_ppUsesBlock_token1];
   ACTIONS 3 [sym__space]; ACTIONS 5 [sym_ppDirective]; ACTIONS 3 [sym_comment];
   ACTIONS 5249 [sym_identifier]; ACTIONS 5256 [sym_kDefault; sym_kNodefault];
   ACTIONS 5259 [sym_kDispId]; ACTIONS 5249 [sym_kGeneric; sym_kOperator];
   ACTIONS 5262 [sym_kPublic]; ACTIONS 5256 [sym_kStatic; sym_kVirtual; sym_kAbstract;
   sym_kDynamic; sym_kOverride; sym_kOverload; sym_kReintroduce; sym_kStdcall; sym_kCdecl;
   sym_kCppdecl; sym_kPascal; sym_kRegister; sym_kMwpascal]; ACTIONS 13860 [sym_kExternal];
   ACTIONS 5265 [sym_kMessage]; ACTIONS 5268 [sym_kDeprecated]; ACTIONS 5256 [sym_kExperimental;
   sym_kPlatform; sym_kUnimplemented; sym_kCvar]; ACTIONS 5271 [sym_kExport];
   ACTIONS 5256 [sym_kFar; sym_kNear; sym_kSafecall; sym_kAssembler; sym_kNostackframe;
   sym_kInterrupt; sym_kNoreturn; sym_kIocheck; sym_kLocal; sym_kHardfloat; sym_kSoftfloat;
   sym_kMs_abi_default; sym_kMs_abi_cdecl; sym_kSaveregisters; sym_kSysv_abi_default;
   sym_kSysv_abi_cdecl; sym_kVectorcall; sym_kVarargs; sym_kWinapi]; ACTIONS 5274 [sym_kAlias];
   ACTIONS 5249 [sym_kBegin; sym_kClass; sym_kConst; sym_kConstructor; sym_kDestructor;
   sym_kExports; sym_kFunction]; ACTIONS 1016 [sym_kInline]; ACTIONS 5249 [sym_kLabel;
   sym_kProcedure; sym_kResourcestring; sym_kThreadvar; sym_kType; sym_kUses; sym_kVar]].

(** State 2267. *)
Definition ts_parse_table_2267 : parse_row :=
  [STATE 2630 [sym__procAttribute]; STATE 14946 [sym_procAttribute];
   STATE 2340 [sym_procExternal; aux_sym_declVar_repeat2]; ACTIONS 14033 [anon_sym_LBRACK];
   ACTIONS 6854 [aux_sym_ppUsesBlock_token1]; ACTIONS 3 [sym__space];
   ACTIONS 5 [sym_ppDirective]; ACTIONS 3 [sym_comment]; ACTIONS 6854 [sym_identifier];
   ACTIONS 6861 [sym_kDefault; sym_kNodefault]; ACTIONS 6864 [sym_kDispId];
   ACTIONS 6854 [sym_kGeneric; sym_kOperator]; ACTIONS 6867 [sym_kPublic];
   ACTIONS 6861 [sym_kStatic; sym_kVirtual; sym_kAbstract; sym_kDynamic; sym_kOverride;
   sym_kOverload; sym_kReintroduce; sym_kStdcall; sym_kCdecl; sym_kCppdecl; sym_kPascal;
   sym_kRegister; sym_kMwpascal]; ACTIONS 13801 [sym_kExternal]; ACTIONS 6870 [sym_kMessage];
   ACTIONS 6873 [sym_kDeprecated]; ACTIONS 6861 [sym_kExperimental; sym_kPlatform;
   sym_kUnimplemented; sym_kCvar]; ACTIONS 6876 [sym_kExport]; ACTIONS 6861 [sym_kFar; sym_kNear;
   sym_kSafecall; sym_kAssembler; sym_kNostackframe; sym_kInterrupt; sym_kNoreturn; sym_kIocheck;
   sym_kLocal; sym_kHardfloat; sym_kSoftfloat; sym_kMs_abi_default; sym_kMs_abi_cdecl;
   sym_kSaveregisters; sym_kSysv_abi_default; sym_kSysv_abi_cdecl; sym_kVectorcall; sym_kVarargs;
   sym_kWinapi]; ACTIONS 6879 [sym_kAlias]; ACTIONS 6854 [sym_kAsm; sym_kBegin; sym_kClass;
   sym_kConst; sym_kConstructor; sym_kDestructor; sym_kExports; sym_kFunction];
   ACTIONS 1016 [sym_kInline]; ACTIONS 6854 [sym_kLabel; sym_kProcedure; sym_kResourcestring;
   sym_kThreadvar; sym_kType; sym_kUses; sym_kVar]].

(** State 2268. *)
Definition ts_parse_table_2268 : parse_row :=
  [STATE 2630 [sym__procAttribute]; STATE 14946 [sym_procAttribute];
   STATE 2324 [sym_procExternal; aux_sym_declVar_repeat2]; ACTIONS 14036 [anon_sym_LBRACK];
   ACTIONS 6913 [aux_sym_ppUsesBlock_token1]; ACTIONS 3 [sym__space];
   ACTIONS 5 [sym_ppDirective]; ACTIONS 3 [sym_comment]; ACTIONS 6913 [sym_identifier];
   ACTIONS 6920 [sym_kDefault; sym_kNodefault]; ACTIONS 6923 [sym_kDispId];
   ACTIONS 6913 [sym_kGeneric; sym_kOperator]; ACTIONS 6926 [sym_kPublic];
   ACTIONS 6920 [sym_kStatic; sym_kVirtual; sym_kAbstract; sym_kDynamic; sym_kOverride;
   sym_kOverload; sym_kReintroduce; sym_kStdcall; sym_kCdecl; sym_kCppdecl; sym_kPascal;
   sym_kRegister; sym_kMwpascal]; ACTIONS 13801 [sym_kExternal]; ACTIONS 6929 [sym_kMessage];
   ACTIONS 6932 [sym_kDeprecated]; ACTIONS 6920 [sym_kExperimental; sym_kPlatform;
   sym_kUnimplemented; sym_kCvar]; ACTIONS 6935 [sym_kExport]; ACTIONS 6920 [sym_kFar; sym_kNear;
   sym_kSafecall; sym_kAssembler; sym_kNostackframe; sym_kInterrupt; sym_kNoreturn; sym_kIocheck;
   sym_kLocal; sym_kHardfloat; sym_kSoftfloat; sym_kMs_abi_default; sym_kMs_abi_cdecl;
   sym_kSaveregisters; sym_kSysv_abi_default; sym_kSysv_abi_cdecl; sym_kVectorcall; sym_kVarargs;
   sym_kWinapi]; ACTIONS 6938 [sym_kAlias]; ACTIONS 6913 [sym_kAsm; sym_kBegin; sym_kClass;
   sym_kConst; sym_kConstructor; sym_kDestructor; sym_kExports; sym_kFunction];
   ACTIONS 1016 [sym_kInline]; ACTIONS 6913 [sym_kLabel; sym_kProcedure; sym_kResourcestring;
   sym_kThreadvar; sym_kType; sym_kUses; sym_kVar]].

(** State 2269. *)
Definition ts_parse_table_2269 : parse_row :=
  [STATE 2630 [sym__procAttribute]; STATE 14946 [sym_procAttribute];
   STATE 2325 [sym_procExternal; aux_sym_declVar_repeat2]; ACTIONS 14039 [anon_sym_LBRACK];
   ACTIONS 6944 [aux_sym_ppUsesBlock_token1]; ACTIONS 3 [sym__space];
   ACTIONS 5 [sym_ppDirective]; ACTIONS 3 [sym_comment]; ACTIONS 6944 [sym_identifier];
   ACTIONS 6951 [sym_kDefault; sym_kNodefault]; ACTIONS 6954 [sym_kDispId];
   ACTIONS 6944 [sym_kGeneric; sym_kOperator]; ACTIONS 6957 [sym_kPublic];
   ACTIONS 6951 [sym_kStatic; sym_kVirtual; sym_kAbstract; sym_kDynamic; sym_kOverride;
   sym_kOverload; sym_kReintroduce; sym_kStdcall; sym_kCdecl; sym_kCppdecl; sym_kPascal;
   sym_kRegister; sym_kMwpascal]; ACTIONS 13801 [sym_kExternal]; ACTIONS 6960 [sym_kMessage];
   ACTIONS 6963 [sym_kDeprecated]; ACTIONS 6951 [sym_kExperimental; sym_kPlatform;
   sym_kUnimplemented; sym_kCvar]; ACTIONS 6966 [sym_kExport]; ACTIONS 6951 [sym_kFar; sym_kNear;
   sym_kSafecall; sym_kAssembler; sym_kNostackframe; sym_kInterrupt; sym_kNoreturn; sym_kIocheck;
   sym_kLocal; sym_kHardfloat; sym_kSoftfloat; sym_kMs_abi_default; sym_kMs_abi_cdecl;
   sym_kSaveregisters; sym_kSysv_abi_default; sym_kSysv_abi_cdecl; sym_kVectorcall; sym_kVarargs;
   sym_kWinapi]; ACTIONS 6969 [sym_kAlias]; ACTIONS 6944 [sym_kAsm; sym_kBegin; sym_kClass;
   sym_kConst; sym_kConstructor; sym_kDestructor; sym_kExports; sym_kFunction];
   ACTIONS 1016 [sym_kInline]; ACTIONS 6944 [sym_kLabel; sym_kProcedure; sym_kResourcestring;
   sym_kThreadvar; sym_kType; sym_kUses; sym_kVar]].

(** State 2270. *)
Definition ts_parse_table_2270 : parse_row :=
  [STATE 2630 [sym__procAttribute]; STATE 14946 [sym_procAttribute];
   STATE 2330 [sym_procExternal; aux_sym_declVar_repeat2]; ACTIONS 14042 [anon_sym_LBRACK];
   ACTIONS 6972 [aux_sym_ppUsesBlock_token1]; ACTIONS 3 [sym__space];
   ACTIONS 5 [sym_ppDirective]; ACTIONS 3 [sym_comment]; ACTIONS 6972 [sym_identifier];
   ACTIONS 6979 [sym_kDefault; sym_kNodefault]; ACTIONS 6982 [sym_kDispId];
   ACTIONS 6972 [sym_kGeneric; sym_kOperator]; ACTIONS 6985 [sym_kPublic];
   ACTIONS 6979 [sym_kStatic; sym_kVirtual; sym_kAbstract; sym_kDynamic; sym_kOverride;
   sym_kOverload; sym_kReintroduce; sym_kStdcall; sym_kCdecl; sym_kCppdecl; sym_kPascal;
   sym_kRegister; sym_kMwpascal]; ACTIONS 13801 [sym_kExternal]; ACTIONS 6988 [sym_kMessage];
   ACTIONS 6991 [sym_kDeprecated]; ACTIONS 6979 [sym_kExperimental; sym_kPlatform;
   sym_kUnimplemented; sym_kCvar]; ACTIONS 6994 [sym_kExport]; ACTIONS 6979 [sym_kFar; sym_kNear;
   sym_kSafecall; sym_kAssembler; sym_kNostackframe; sym_kInterrupt; sym_kNoreturn; sym_kIocheck;
   sym_kLocal; sym_kHardfloat; sym_kSoftfloat; sym_kMs_abi_default; sym_kMs_abi_cdecl;
   sym_kSaveregisters; sym_kSysv_abi_default; sym_kSysv_abi_cdecl; sym_kVectorcall; sym_kVarargs;
   sym_kWinapi]; ACTIONS 6997 [sym_kAlias]; ACTIONS 6972 [sym_kAsm; sym_kBegin; sym_kClass;
   sym_kConst; sym_kConstructor; sym_kDestructor; sym_kExports; sym_kFunction];
   ACTIONS 1016 [sym_kInline]; ACTIONS 6972 [sym_kLabel; sym_kProcedure; sym_kResourcestring;
   sym_kThreadvar; sym_kType; sym_kUses; sym_kVar]].

(** State 2271. *)
Definition ts_parse_table_2271 : parse_row :=
  [STATE 2630 [sym__procAttribute]; STATE 14946 [sym_procAttribute];
   STATE 2340 [sym_procExternal; aux_sym_declVar_repeat2]; ACTIONS 14045 [anon_sym_LBRACK];
   ACTIONS 7031 [aux_sym_ppUsesBlock_token1]; ACTIONS 3 [sym__space];
   ACTIONS 5 [sym_ppDirective]; ACTIONS 3 [sym_comment]; ACTIONS 7031 [sym_identifier];
   ACTIONS 7038 [sym_kDefault; sym_kNodefault]; ACTIONS 7041 [sym_kDispId];
   ACTIONS 7031 [sym_kGeneric; sym_kOperator]; ACTIONS 7044 [sym_kPublic];
   ACTIONS 7038 [sym_kStatic; sym_kVirtual; sym_kAbstract; sym_kDynamic; sym_kOverride;
   sym_kOverload; sym_kReintroduce; sym_kStdcall; sym_kCdecl; sym_kCppdecl; sym_kPascal;
   sym_kRegister; sym_kMwpascal]; ACTIONS 13801 [sym_kExternal]; ACTIONS 7047 [sym_kMessage];
   ACTIONS 7050 [sym_kDeprecated]; ACTIONS 7038 [sym_kExperimental; sym_kPlatform;
   sym_kUnimplemented; sym_kCvar]; ACTIONS 7053 [sym_kExport]; ACTIONS 7038 [sym_kFar; sym_kNear;
   sym_kSafecall; sym_kAssembler; sym_kNostackframe; sym_kInterrupt; sym_kNoreturn; sym_kIocheck;
   sym_kLocal; sym_kHardfloat; sym_kSoftfloat; sym_kMs_abi_default; sym_kMs_abi_cdecl;
   sym_kSaveregisters; sym_kSysv_abi_default; sym_kSysv_abi_cdecl; sym_kVectorcall; sym_kVarargs;
   sym_kWinapi]; ACTIONS 7056 [sym_kAlias]; ACTIONS 7031 [sym_kAsm; sym_kBegin; sym_kClass;
   sym_kConst; sym_kConstructor; sym_kDestructor; sym_kExports; sym_kFunction];
   ACTIONS 1016 [sym_kInline]; ACTIONS 7031 [sym_kLabel; sym_kProcedure; sym_kResourcestring;
   sym_kThreadvar; sym_kType; sym_kUses; sym_kVar]].

(** State 2272. *)
Definition ts_parse_table_2272 : parse_row :=
  [STATE 2630 [sym__procAttribute]; STATE 14946 [sym_procAttribute];
   STATE 2161 [sym_procExternal; aux_sym_declVar_repeat2]; ACTIONS 14048 [anon_sym_LBRACK];
   ACTIONS 7090 [aux_sym_ppUsesBlock_token1]; ACTIONS 3 [sym__space];
   ACTIONS 5 [sym_ppDirective]; ACTIONS 3 [sym_comment]; ACTIONS 7090 [sym_identifier];
   ACTIONS 7097 [sym_kDefault; sym_kNodefault]; ACTIONS 7100 [sym_kDispId];
   ACTIONS 7090 [sym_kGeneric; sym_kOperator]; ACTIONS 7103 [sym_kPublic];
   ACTIONS 7097 [sym_kStatic; sym_kVirtual; sym_kAbstract; sym_kDynamic; sym_kOverride;
   sym_kOverload; sym_kReintroduce; sym_kStdcall; sym_kCdecl; sym_kCppdecl; sym_kPascal;
   sym_kRegister; sym_kMwpascal]; ACTIONS 13801 [sym_kExternal]; ACTIONS 7106 [sym_kMessage];
   ACTIONS 7109 [sym_kDeprecated]; ACTIONS 7097 [sym_kExperimental; sym_kPlatform;
   sym_kUnimplemented; sym_kCvar]; ACTIONS 7112 [sym_kExport]; ACTIONS 7097 [sym_kFar; sym_kNear;
   sym_kSafecall; sym_kAssembler; sym_kNostackframe; sym_kInterrupt; sym_kNoreturn; sym_kIocheck;
   sym_kLocal; sym_kHardfloat; sym_kSoftfloat; sym_kMs_abi_default; sym_kMs_abi_cdecl;
   sym_kSaveregisters; sym_kSysv_abi_default; sym_kSysv_abi_cdecl; sym_kVectorcall; sym_kVarargs;
   sym_kWinapi]; ACTIONS 7115 [sym_kAlias]; ACTIONS 7090 [sym_kAsm; sym_kBegin; sym_kClass;
   sym_kConst; sym_kConstructor; sym_kDestructor; sym_kExports; sym_kFunction];
   ACTIONS 1016 [sym_kInline]; ACTIONS 7090 [sym_kLabel; sym_kProcedure; sym_kResourcestring;
   sym_kThreadvar; sym_kType; sym_kUses; sym_kVar]].

(** State 2273. *)
Definition ts_parse_table_2273 : parse_row :=
  [STATE 2630 [sym__procAttribute]; STATE 14946 [sym_procAttribute];
   STATE 2340 [sym_procExternal; aux_sym_declVar_repeat2]; ACTIONS 14051 [anon_sym_LBRACK];
   ACTIONS 7118 [aux_sym_ppUsesBlock_token1]; ACTIONS 3 [sym__space];
   ACTIONS 5 [sym_ppDirective]; ACTIONS 3 [sym_comment]; ACTIONS 7118 [sym_identifier];
   ACTIONS 7125 [sym_kDefault; sym_kNodefault]; ACTIONS 7128 [sym_kDispId];
   ACTIONS 7118 [sym_kGeneric; sym_kOperator]; ACTIONS 7131 [sym_kPublic];
   ACTIONS 7125 [sym_kStatic; sym_kVirtual; sym_kAbstract; sym_kDynamic; sym_kOverride;
   sym_kOverload; sym_kReintroduce; sym_kStdcall; sym_kCdecl; sym_kCppdecl; sym_kPascal;
   sym_kRegister; sym_kMwpascal]; ACTIONS 13801 [sym_kExternal]; ACTIONS 7134 [sym_kMessage];
   ACTIONS 7137 [sym_kDeprecated]; ACTIONS 7125 [sym_kExperimental; sym_kPlatform;
   sym_kUnimplemented; sym_kCvar]; ACTIONS 7140 [sym_kExport]; ACTIONS 7125 [sym_kFar; sym_kNear;
   sym_kSafecall; sym_kAssembler; sym_kNostackframe; sym_kInterrupt; sym_kNoreturn; sym_kIocheck;
   sym_kLocal; sym_kHardfloat; sym_kSoftfloat; sym_kMs_abi_default; sym_kMs_abi_cdecl;
   sym_kSaveregisters; sym_kSysv_abi_default; sym_kSysv_abi_cdecl; sym_kVectorcall; sym_kVarargs;
   sym_kWinapi]; ACTIONS 7143 [sym_kAlias]; ACTIONS 7118 [sym_kAsm; sym_kBegin; sym_kClass;
   sym_kConst; sym_kConstructor; sym_kDestructor; sym_kExports; sym_kFunction];
   ACTIONS 1016 [sym_kInline]; ACTIONS 7118 [sym_kLabel; sym_kProcedure; sym_kResourcestring;
   sym_kThreadvar; sym_kType; sym_kUses; sym_kVar]].

(** State 2274. *)
Definition ts_parse_table_2274 : parse_row :=
  [STATE 2630 [sym__procAttribute]; STATE 14946 [sym_procAttribute];
   STATE 2163 [sym_procExternal; aux_sym_declVar_repeat2]; ACTIONS 14054 [anon_sym_LBRACK];
   ACTIONS 7177 [aux_sym_ppUsesBlock_token1]; ACTIONS 3 [sym__space];
   ACTIONS 5 [sym_ppDirective]; ACTIONS 3 [sym_comment]; ACTIONS 7177 [sym_identifier];
   ACTIONS 7184 [sym_kDefault; sym_kNodefault]; ACTIONS 7187 [sym_kDispId];
   ACTIONS 7177 [sym_kGeneric; sym_kOperator]; ACTIONS 7190 [sym_kPublic];
   ACTIONS 7184 [sym_kStatic; sym_kVirtual; sym_kAbstract; sym_kDynamic; sym_kOverride;
   sym_kOverload; sym_kReintroduce; sym_kStdcall; sym_kCdecl; sym_kCppdecl; sym_kPascal;
   sym_kRegister; sym_kMwpascal]; ACTIONS 13801 [sym_kExternal]; ACTIONS 7193 [sym_kMessage];
   ACTIONS 7196 [sym_kDeprecated]; ACTIONS 7184 [sym_kExperimental; sym_kPlatform;
   sym_kUnimplemented; sym_kCvar]; ACTIONS 7199 [sym_kExport]; ACTIONS 7184 [sym_kFar; sym_kNear;
   sym_kSafecall; sym_kAssembler; sym_kNostackframe; sym_kInterrupt; sym_kNoreturn; sym_kIocheck;
   sym_kLocal; sym_kHardfloat; sym_kSoftfloat; sym_kMs_abi_default; sym_kMs_abi_cdecl;
   sym_kSaveregisters; sym_kSysv_abi_default; sym_kSysv_abi_cdecl; sym_kVectorcall; sym_kVarargs;
   sym_kWinapi]; ACTIONS 7202 [sym_kAlias]; ACTIONS 7177 [sym_kAsm; sym_kBegin; sym_kClass;
   sym_kConst; sym_kConstructor; sym_kDestructor; sym_kExports; sym_kFunction];
   ACTIONS 1016 [sym_kInline]; ACTIONS 7177 [sym_kLabel; sym_kProcedure; sym_kResourcestring;
   sym_kThreadvar; sym_kType; sym_kUses; sym_kVar]].

(** State 2275. *)
Definition ts_parse_table_2275 : parse_row :=
  [STATE 2633 [sym__procAttribute]; STATE 14888 [sym_procAttribute];
   STATE 2263 [sym_procExternal; aux_sym_declVar_repeat2]; ACTIONS 5308 [ts_builtin_sym_end];
   ACTIONS 14057 [anon_sym_LBRACK]; ACTIONS 5308 [aux_sym_ppUsesBlock_token1];
   ACTIONS 3 [sym__space]; ACTIONS 5 [sym_ppDirective]; ACTIONS 3 [sym_comment];
   ACTIONS 5308 [sym_identifier]; ACTIONS 5315 [sym_kDefault; sym_kNodefault];
   ACTIONS 5318 [sym_kDispId]; ACTIONS 5308 [sym_kGeneric; sym_kOperator];
   ACTIONS 5321 [sym_kPublic]; ACTIONS 5315 [sym_kStatic; sym_kVirtual; sym_kAbstract;
   sym_kDynamic; sym_kOverride; sym_kOverload; sym_kReintroduce; sym_kStdcall; sym_kCdecl;
   sym_kCppdecl; sym_kPascal; sym_kRegister; sym_kMwpascal]; ACTIONS 13860 [sym_kExternal];
   ACTIONS 5324 [sym_kMessage]; ACTIONS 5327 [sym_kDeprecated]; ACTIONS 5315 [sym_kExperimental;
   sym_kPlatform; sym_kUnimplemented; sym_kCvar]; ACTIONS 5330 [sym_kExport];
   ACTIONS 5315 [sym_kFar; sym_kNear; sym_kSafecall; sym_kAssembler; sym_kNostackframe;
   sym_kInterrupt; sym_kNoreturn; sym_kIocheck; sym_kLocal; sym_kHardfloat; sym_kSoftfloat;
   sym_kMs_abi_default; sym_kMs_abi_cdecl; sym_kSaveregisters; sym_kSysv_abi_default;
   sym_kSysv_abi_cdecl; sym_kVectorcall; sym_kVarargs; sym_kWinapi]; ACTIONS 5333 [sym_kAlias];
   ACTIONS 5308 [sym_kBegin; sym_kClass; sym_kConst; sym_kConstructor; sym_kDestructor;
   sym_kExports; sym_kFunction]; ACTIONS 1016 [sym_kInline]; ACTIONS 5308 [sym_kLabel;
   sym_kProcedure; sym_kResourcestring; sym_kThreadvar; sym_kType; sym_kUses; sym_kVar]].

(** State 2276. *)
Definition ts_parse_table_2276 : parse_row :=
  [STATE 2633 [sym__procAttribute]; STATE 14888 [sym_procAttribute];
   STATE 2287 [sym_procExternal; aux_sym_declVar_repeat2]; ACTIONS 5373 [ts_builtin_sym_end];
   ACTIONS 14060 [anon_sym_LBRACK]; ACTIONS 5373 [aux_sym_ppUsesBlock_token1];
   ACTIONS 3 [sym__space]; ACTIONS 5 [sym_ppDirective]; ACTIONS 3 [sym_comment];
   ACTIONS 5373 [sym_identifier]; ACTIONS 5380 [sym_kDefault; sym_kNodefault];
   ACTIONS 5383 [sym_kDispId]; ACTIONS 5373 [sym_kGeneric; sym_kOperator];
   ACTIONS 5386 [sym_kPublic]; ACTIONS 5380 [sym_kStatic; sym_kVirtual; sym_kAbstract;
   sym_kDynamic; sym_kOverride; sym_kOverload; sym_kReintroduce; sym_kStdcall; sym_kCdecl;
   sym_kCppdecl; sym_kPascal; sym_kRegister; sym_kMwpascal]; ACTIONS 13860 [sym_kExternal];
   ACTIONS 5389 [sym_kMessage]; ACTIONS 5392 [sym_kDeprecated]; ACTIONS 5380 [sym_kExperimental;
   sym_kPlatform; sym_kUnimplemented; sym_kCvar]; ACTIONS 5395 [sym_kExport];
   ACTIONS 5380 [sym_kFar; sym_kNear; sym_kSafecall; sym_kAssembler; sym_kNostackframe;
   sym_kInterrupt; sym_kNoreturn; sym_kIocheck; sym_kLocal; sym_kHardfloat; sym_kSoftfloat;
   sym_kMs_abi_default; sym_kMs_abi_cdecl; sym_kSaveregisters; sym_kSysv_abi_default;
   sym_kSysv_abi_cdecl; sym_kVectorcall; sym_kVarargs; sym_kWinapi]; ACTIONS 5398 [sym_kAlias];
   ACTIONS 5373 [sym_kBegin; sym_kClass; sym_kConst; sym_kConstructor; sym_kDestructor;
   sym_kExports; sym_kFunction]; ACTIONS 1016 [sym_kInline]; ACTIONS 5373 [sym_kLabel;
   sym_kProcedure; sym_kResourcestring; sym_kThreadvar; sym_kType; sym_kUses; sym_kVar]].

(** State 2277. *)
Definition ts_parse_table_2277 : parse_row :=
  [ACTIONS 10634 [anon_sym_LBRACK; aux_sym_ppUsesBlock_token1]; ACTIONS 3 [sym__space];
   ACTIONS 5 [sym_ppDirective]; ACTIONS 3 [sym_comment]; ACTIONS 10634 [sym_identifier;
   sym_kDefault; sym_kNodefault; sym_kDispId; sym_kGeneric; sym_kOperator; sym_kPublic;
   sym_kStatic; sym_kVirtual; sym_kAbstract; sym_kDynamic; sym_kOverride; sym_kOverload;
   sym_kReintroduce; sym_kStdcall; sym_kCdecl; sym_kCppdecl; sym_kPascal; sym_kRegister;
   sym_kMwpascal; sym_kExternal; sym_kMessage; sym_kDeprecated; sym_kExperimental; sym_kPlatform;
   sym_kUnimplemented; sym_kCvar; sym_kExport; sym_kFar; sym_kNear; sym_kSafecall;
   sym_kAssembler; sym_kNostackframe; sym_kInterrupt; sym_kNoreturn; sym_kIocheck; sym_kLocal;
   sym_kHardfloat; sym_kSoftfloat; sym_kMs_abi_default; sym_kMs_abi_cdecl; sym_kSaveregisters;
   sym_kSysv_abi_default; sym_kSysv_abi_cdecl; sym_kVectorcall; sym_kVarargs; sym_kWinapi;
   sym_kAlias; sym_kClass; sym_kConst; sym_kConstructor; sym_kDestructor; sym_kEnd; sym_kExports;
   sym_kFinalization; sym_kFunction; sym_kImplementation; sym_kInitialization; sym_kInline;
   sym_kInterface; sym_kLabel; sym_kProcedure; sym_kProperty; sym_kResourcestring;
   sym_kThreadvar; sym_kType; sym_kUses; sym_kVar]].

(** State 2278. *)
Definition ts_parse_table_2278 : parse_row :=
  [ACTIONS 10638 [anon_sym_LBRACK; aux_sym_ppUsesBlock_token1]; ACTIONS 3 [sym__space];
   ACTIONS 5 [sym_ppDirective]; ACTIONS 3 [sym_comment]; ACTIONS 10638 [sym_identifier;
   sym_kDefault; sym_kNodefault; sym_kDispId; sym_kGeneric; sym_kOperator; sym_kPublic;
   sym_kStatic; sym_kVirtual; sym_kAbstract; sym_kDynamic; sym_kOverride; sym_kOverload;
   sym_kReintroduce; sym_kStdcall; sym_kCdecl; sym_kCppdecl; sym_kPascal; sym_kRegister;
   sym_kMwpascal; sym_kExternal; sym_kMessage; sym_kDeprecated; sym_kExperimental; sym_kPlatform;
   sym_kUnimplemented; sym_kCvar; sym_kExport; sym_kFar; sym_kNear; sym_kSafecall;
   sym_kAssembler; sym_kNostackframe; sym_kInterrupt; sym_kNoreturn; sym_kIocheck; sym_kLocal;
   sym_kHardfloat; sym_kSoftfloat; sym_kMs_abi_default; sym_kMs_abi_cdecl; sym_kSaveregisters;
   sym_kSysv_abi_default; sym_kSysv_abi_cdecl; sym_kVectorcall; sym_kVarargs; sym_kWinapi;
   sym_kAlias; sym_kClass; sym_kConst; sym_kConstructor; sym_kDestructor; sym_kEnd; sym_kExports;
   sym_kFinalization; sym_kFunction; sym_kImplementation; sym_kInitialization; sym_kInline;
   sym_kInterface; sym_kLabel; sym_kProcedure; sym_kProperty; sym_kResourcestring;
   sym_kThreadvar; sym_kType; sym_kUses; sym_kVar]].

(** State 2279. *)
Definition ts_parse_table_2279 : parse_row :=
  [STATE 2633 [sym__procAttribute]; STATE 14888 [sym_procAttribute];
   STATE 2321 [sym_procExternal; aux_sym_declVar_repeat2]; ACTIONS 6525 [ts_builtin_sym_end];
   ACTIONS 14063 [anon_sym_LBRACK]; ACTIONS 6525 [aux_sym_ppUsesBlock_token1];
   ACTIONS 3 [sym__space]; ACTIONS 5 [sym_ppDirective]; ACTIONS 3 [sym_comment];
   ACTIONS 6525 [sym_identifier]; ACTIONS 6532 [sym_kDefault; sym_kNodefault];
   ACTIONS 6535 [sym_kDispId]; ACTIONS 6525 [sym_kGeneric; sym_kOperator];
   ACTIONS 6538 [sym_kPublic]; ACTIONS 6532 [sym_kStatic; sym_kVirtual; sym_kAbstract;
   sym_kDynamic; sym_kOverride; sym_kOverload; sym_kReintroduce; sym_kStdcall; sym_kCdecl;
   sym_kCppdecl; sym_kPascal; sym_kRegister; sym_kMwpascal]; ACTIONS 13860 [sym_kExternal];
   ACTIONS 6541 [sym_kMessage]; ACTIONS 6544 [sym_kDeprecated]; ACTIONS 6532 [sym_kExperimental;
   sym_kPlatform; sym_kUnimplemented; sym_kCvar]; ACTIONS 6547 [sym_kExport];
   ACTIONS 6532 [sym_kFar; sym_kNear; sym_kSafecall; sym_kAssembler; sym_kNostackframe;
   sym_kInterrupt; sym_kNoreturn; sym_kIocheck; sym_kLocal; sym_kHardfloat; sym_kSoftfloat;
   sym_kMs_abi_default; sym_kMs_abi_cdecl; sym_kSaveregisters; sym_kSysv_abi_default;
   sym_kSysv_abi_cdecl; sym_kVectorcall; sym_kVarargs; sym_kWinapi]; ACTIONS 6550 [sym_kAlias];
   ACTIONS 6525 [sym_kBegin; sym_kClass; sym_kConst; sym_kConstructor; sym_kDestructor;
   sym_kExports; sym_kFunction]; ACTIONS 1016 [sym_kInline]; ACTIONS 6525 [sym_kLabel;
   sym_kProcedure; sym_kResourcestring; sym_kThreadvar; sym_kType; sym_kUses; sym_kVar]].

(** State 2280. *)
Definition ts_parse_table_2280 : parse_row :=
  [STATE 2656 [sym__procAttribute]; STATE 14883 [sym_procAttribute];
   STATE 2303 [sym_procExternal; aux_sym_declVar_repeat2]; ACTIONS 14066 [anon_sym_LBRACK];
   ACTIONS 4029 [aux_sym_ppUsesBlock_token1]; ACTIONS 3 [sym__space];
   ACTIONS 5 [sym_ppDirective]; ACTIONS 3 [sym_comment]; ACTIONS 4029 [sym_identifier];
   ACTIONS 4036 [sym_kDefault; sym_kNodefault]; ACTIONS 4039 [sym_kDispId];
   ACTIONS 4029 [sym_kGeneric; sym_kOperator]; ACTIONS 4042 [sym_kPublic];
   ACTIONS 4036 [sym_kStatic; sym_kVirtual; sym_kAbstract; sym_kDynamic; sym_kOverride;
   sym_kOverload; sym_kReintroduce; sym_kStdcall; sym_kCdecl; sym_kCppdecl; sym_kPascal;
   sym_kRegister; sym_kMwpascal]; ACTIONS 13763 [sym_kExternal]; ACTIONS 4045 [sym_kMessage];
   ACTIONS 4048 [sym_kDeprecated]; ACTIONS 4036 [sym_kExperimental; sym_kPlatform;
   sym_kUnimplemented; sym_kCvar]; ACTIONS 4051 [sym_kExport]; ACTIONS 4036 [sym_kFar; sym_kNear;
   sym_kSafecall; sym_kAssembler; sym_kNostackframe; sym_kInterrupt; sym_kNoreturn; sym_kIocheck;
   sym_kLocal; sym_kHardfloat; sym_kSoftfloat; sym_kMs_abi_default; sym_kMs_abi_cdecl;
   sym_kSaveregisters; sym_kSysv_abi_default; sym_kSysv_abi_cdecl; sym_kVectorcall; sym_kVarargs;
   sym_kWinapi]; ACTIONS 4054 [sym_kAlias]; ACTIONS 4029 [sym_kBegin; sym_kClass; sym_kConst;
   sym_kConstructor; sym_kDestructor; sym_kEnd; sym_kExports; sym_kFunction];
   ACTIONS 1016 [sym_kInline]; ACTIONS 4029 [sym_kLabel; sym_kProcedure; sym_kResourcestring;
   sym_kThreadvar; sym_kType; sym_kUses; sym_kVar]].

(** State 2281. *)
Definition ts_parse_table_2281 : parse_row :=
  [STATE 2656 [sym__procAttribute]; STATE 14883 [sym_procAttribute];
   STATE 2305 [sym_procExternal; aux_sym_declVar_repeat2]; ACTIONS 14069 [anon_sym_LBRACK];
   ACTIONS 4085 [aux_sym_ppUsesBlock_token1]; ACTIONS 3 [sym__space];
   ACTIONS 5 [sym_ppDirective]; ACTIONS 3 [sym_comment]; ACTIONS 4085 [sym_identifier];
   ACTIONS 4092 [sym_kDefault; sym_kNodefault]; ACTIONS 4095 [sym_kDispId];
   ACTIONS 4085 [sym_kGeneric; sym_kOperator]; ACTIONS 4098 [sym_kPublic];
   ACTIONS 4092 [sym_kStatic; sym_kVirtual; sym_kAbstract; sym_kDynamic; sym_kOverride;
   sym_kOverload; sym_kReintroduce; sym_kStdcall; sym_kCdecl; sym_kCppdecl; sym_kPascal;
   sym_kRegister; sym_kMwpascal]; ACTIONS 13763 [sym_kExternal]; ACTIONS 4101 [sym_kMessage];
   ACTIONS 4104 [sym_kDeprecated]; ACTIONS 4092 [sym_kExperimental; sym_kPlatform;
   sym_kUnimplemented; sym_kCvar]; ACTIONS 4107 [sym_kExport]; ACTIONS 4092 [sym_kFar; sym_kNear;
   sym_kSafecall; sym_kAssembler; sym_kNostackframe; sym_kInterrupt; sym_kNoreturn; sym_kIocheck;
   sym_kLocal; sym_kHardfloat; sym_kSoftfloat; sym_kMs_abi_default; sym_kMs_abi_cdecl;
   sym_kSaveregisters; sym_kSysv_abi_default; sym_kSysv_abi_cdecl; sym_kVectorcall; sym_kVarargs;
   sym_kWinapi]; ACTIONS 4110 [sym_kAlias]; ACTIONS 4085 [sym_kBegin; sym_kClass; sym_kConst;
   sym_kConstructor; sym_kDestructor; sym_kEnd; sym_kExports; sym_kFunction];
   ACTIONS 1016 [sym_kInline]; ACTIONS 4085 [sym_kLabel; sym_kProcedure; sym_kResourcestring;
   sym_kThreadvar; sym_kType; sym_kUses; sym_kVar]].

(** State 2282. *)
Definition ts_parse_table_2282 : parse_row :=
  [ACTIONS 10614 [anon_sym_LBRACK; aux_sym_ppUsesBlock_token1]; ACTIONS 3 [sym__space];
   ACTIONS 5 [sym_ppDirective]; ACTIONS 3 [sym_comment]; ACTIONS 10614 [sym_identifier;
   sym_kDefault; sym_kNodefault; sym_kDispId; sym_kGeneric; sym_kOperator; sym_kPublic;
   sym_kStatic; sym_kVirtual; sym_kAbstract; sym_kDynamic; sym_kOverride; sym_kOverload;
   sym_kReintroduce; sym_kStdcall; sym_kCdecl; sym_kCppdecl; sym_kPascal; sym_kRegister;
   sym_kMwpascal; sym_kExternal; sym_kMessage; sym_kDeprecated; sym_kExperimental; sym_kPlatform;
   sym_kUnimplemented; sym_kCvar; sym_kExport; sym_kFar; sym_kNear; sym_kSafecall;
   sym_kAssembler; sym_kNostackframe; sym_kInterrupt; sym_kNoreturn; sym_kIocheck; sym_kLocal;
   sym_kHardfloat; sym_kSoftfloat; sym_kMs_abi_default; sym_kMs_abi_cdecl; sym_kSaveregisters;
   sym_kSysv_abi_default; sym_kSysv_abi_cdecl; sym_kVectorcall; sym_kVarargs; sym_kWinapi;
   sym_kAlias; sym_kBegin; sym_kClass; sym_kConst; sym_kConstructor; sym_kDestructor; sym_kEnd;
   sym_kExports; sym_kFinalization; sym_kFunction; sym_kImplementation; sym_kInitialization;
   sym_kInline; sym_kInterface; sym_kLabel; sym_kProcedure; sym_kResourcestring; sym_kThreadvar;
   sym_kType; sym_kUses; sym_kVar]].

(** State 2283. *)
Definition ts_parse_table_2283 : parse_row :=
  [ACTIONS 9834 [anon_sym_LBRACK; aux_sym_ppUsesBlock_token1]; ACTIONS 3 [sym__space];
   ACTIONS 5 [sym_ppDirective]; ACTIONS 3 [sym_comment]; ACTIONS 9834 [sym_kDefault;
   sym_kNodefault; sym_kDispId; sym_kGeneric; sym_kOperator; sym_kPublic; sym_kForward;
   sym_kStatic; sym_kVirtual; sym_kAbstract; sym_kDynamic; sym_kOverride; sym_kOverload;
   sym_kReintroduce; sym_kStdcall; sym_kCdecl; sym_kCppdecl; sym_kPascal; sym_kRegister;
   sym_kMwpascal; sym_kExternal; sym_kMessage; sym_kDeprecated; sym_kExperimental; sym_kPlatform;
   sym_kUnimplemented; sym_kCvar; sym_kExport; sym_kFar; sym_kNear; sym_kSafecall;
   sym_kAssembler; sym_kNostackframe; sym_kInterrupt; sym_kNoreturn; sym_kIocheck; sym_kLocal;
   sym_kHardfloat; sym_kSoftfloat; sym_kMs_abi_default; sym_kMs_abi_cdecl; sym_kSaveregisters;
   sym_kSysv_abi_default; sym_kSysv_abi_cdecl; sym_kVectorcall; sym_kVarargs; sym_kWinapi;
   sym_kAlias; sym_kClass; sym_kConst; sym_kConstructor; sym_kDestructor; sym_kEnd; sym_kExports;
   sym_kFinalization; sym_kFunction; sym_kImplementation; sym_kInitialization; sym_kInline;
   sym_kInterface; sym_kLabel; sym_kProcedure; sym_kProperty; sym_kResourcestring;
   sym_kThreadvar; sym_kType; sym_kUses; sym_kVar]].

(** State 2284. *)
Definition ts_parse_table_2284 : parse_row :=
  [ACTIONS 9838 [anon_sym_LBRACK; aux_sym_ppUsesBlock_token1]; ACTIONS 3 [sym__space];
   ACTIONS 5 [sym_ppDirective]; ACTIONS 3 [sym_comment]; ACTIONS 9838 [sym_kDefault;
   sym_kNodefault; sym_kDispId; sym_kGeneric; sym_kOperator; sym_kPublic; sym_kForward;
   sym_kStatic; sym_kVirtual; sym_kAbstract; sym_kDynamic; sym_kOverride; sym_kOverload;
   sym_kReintroduce; sym_kStdcall; sym_kCdecl; sym_kCppdecl; sym_kPascal; sym_kRegister;
   sym_kMwpascal; sym_kExternal; sym_kMessage; sym_kDeprecated; sym_kExperimental; sym_kPlatform;
   sym_kUnimplemented; sym_kCvar; sym_kExport; sym_kFar; sym_kNear; sym_kSafecall;
   sym_kAssembler; sym_kNostackframe; sym_kInterrupt; sym_kNoreturn; sym_kIocheck; sym_kLocal;
   sym_kHardfloat; sym_kSoftfloat; sym_kMs_abi_default; sym_kMs_abi_cdecl; sym_kSaveregisters;
   sym_kSysv_abi_default; sym_kSysv_abi_cdecl; sym_kVectorcall; sym_kVarargs; sym_kWinapi;
   sym_kAlias; sym_kClass; sym_kConst; sym_kConstructor; sym_kDestructor; sym_kEnd; sym_kExports;
   sym_kFinalization; sym_kFunction; sym_kImplementation; sym_kInitialization; sym_kInline;
   sym_kInterface; sym_kLabel; sym_kProcedure; sym_kProperty; sym_kResourcestring;
   sym_kThreadvar; sym_kType; sym_kUses; sym_kVar]].

(** State 2285. *)
Definition ts_parse_table_2285 : parse_row :=
  [STATE 2633 [sym__procAttribute]; STATE 14888 [sym_procAttribute];
   STATE 2287 [sym_procExternal; aux_sym_declVar_repeat2]; ACTIONS 5722 [ts_builtin_sym_end];
   ACTIONS 14072 [anon_sym_LBRACK]; ACTIONS 5722 [aux_sym_ppUsesBlock_token1];
   ACTIONS 3 [sym__space]; ACTIONS 5 [sym_ppDirective]; ACTIONS 3 [sym_comment];
   ACTIONS 5722 [sym_identifier]; ACTIONS 5729 [sym_kDefault; sym_kNodefault];
   ACTIONS 5732 [sym_kDispId]; ACTIONS 5722 [sym_kGeneric; sym_kOperator];
   ACTIONS 5735 [sym_kPublic]; ACTIONS 5729 [sym_kStatic; sym_kVirtual; sym_kAbstract;
   sym_kDynamic; sym_kOverride; sym_kOverload; sym_kReintroduce; sym_kStdcall; sym_kCdecl;
   sym_kCppdecl; sym_kPascal; sym_kRegister; sym_kMwpascal]; ACTIONS 13860 [sym_kExternal];
   ACTIONS 5738 [sym_kMessage]; ACTIONS 5741 [sym_kDeprecated]; ACTIONS 5729 [sym_kExperimental;
   sym_kPlatform; sym_kUnimplemented; sym_kCvar]; ACTIONS 5744 [sym_kExport];
   ACTIONS 5729 [sym_kFar; sym_kNear; sym_kSafecall; sym_kAssembler; sym_kNostackframe;
   sym_kInterrupt; sym_kNoreturn; sym_kIocheck; sym_kLocal; sym_kHardfloat; sym_kSoftfloat;
   sym_kMs_abi_default; sym_kMs_abi_cdecl; sym_kSaveregisters; sym_kSysv_abi_default;
   sym_kSysv_abi_cdecl; sym_kVectorcall; sym_kVarargs; sym_kWinapi]; ACTIONS 5747 [sym_kAlias];
   ACTIONS 5722 [sym_kBegin; sym_kClass; sym_kConst; sym_kConstructor; sym_kDestructor;
   sym_kExports; sym_kFunction]; ACTIONS 1016 [sym_kInline]; ACTIONS 5722 [sym_kLabel;
   sym_kProcedure; sym_kResourcestring; sym_kThreadvar; sym_kType; sym_kUses; sym_kVar]].

(** State 2286. *)
Definition ts_parse_table_2286 : parse_row :=
  [STATE 2633 [sym__procAttribute]; STATE 14888 [sym_procAttribute];
   STATE 2287 [sym_procExternal; aux_sym_declVar_repeat2]; ACTIONS 7356 [ts_builtin_sym_end];
   ACTIONS 14075 [anon_sym_LBRACK]; ACTIONS 7356 [aux_sym_ppUsesBlock_token1];
   ACTIONS 3 [sym__space]; ACTIONS 5 [sym_ppDirective]; ACTIONS 3 [sym_comment];
   ACTIONS 7356 [sym_identifier]; ACTIONS 7363 [sym_kDefault; sym_kNodefault];
   ACTIONS 7366 [sym_kDispId]; ACTIONS 7356 [sym_kGeneric; sym_kOperator];
   ACTIONS 7369 [sym_kPublic]; ACTIONS 7363 [sym_kStatic; sym_kVirtual; sym_kAbstract;
   sym_kDynamic; sym_kOverride; sym_kOverload; sym_kReintroduce; sym_kStdcall; sym_kCdecl;
   sym_kCppdecl; sym_kPascal; sym_kRegister; sym_kMwpascal]; ACTIONS 13860 [sym_kExternal];
   ACTIONS 7372 [sym_kMessage]; ACTIONS 7375 [sym_kDeprecated]; ACTIONS 7363 [sym_kExperimental;
   sym_kPlatform; sym_kUnimplemented; sym_kCvar]; ACTIONS 7378 [sym_kExport];
   ACTIONS 7363 [sym_kFar; sym_kNear; sym_kSafecall; sym_kAssembler; sym_kNostackframe;
   sym_kInterrupt; sym_kNoreturn; sym_kIocheck; sym_kLocal; sym_kHardfloat; sym_kSoftfloat;
   sym_kMs_abi_default; sym_kMs_abi_cdecl; sym_kSaveregisters; sym_kSysv_abi_default;
   sym_kSysv_abi_cdecl; sym_kVectorcall; sym_kVarargs; sym_kWinapi]; ACTIONS 7381 [sym_kAlias];
   ACTIONS 7356 [sym_kBegin; sym_kClass; sym_kConst; sym_kConstructor; sym_kDestructor;
   sym_kExports; sym_kFunction]; ACTIONS 1016 [sym_kInline]; ACTIONS 7356 [sym_kLabel;
   sym_kProcedure; sym_kResourcestring; sym_kThreadvar; sym_kType; sym_kUses; sym_kVar]].

(** State 2287. *)
Definition ts_parse_table_2287 : parse_row :=
  [STATE 2633 [sym__procAttribute]; STATE 14888 [sym_procAttribute];
   STATE 2287 [sym_procExternal; aux_sym_declVar_repeat2]; ACTIONS 6584 [ts_builtin_sym_end];
   ACTIONS 14078 [anon_sym_LBRACK]; ACTIONS 6584 [aux_sym_ppUsesBlock_token1];
   ACTIONS 3 [sym__space]; ACTIONS 5 [sym_ppDirective]; ACTIONS 3 [sym_comment];
   ACTIONS 6584 [sym_identifier]; ACTIONS 6591 [sym_kDefault; sym_kNodefault];
   ACTIONS 6594 [sym_kDispId]; ACTIONS 6584 [sym_kGeneric; sym_kOperator];
   ACTIONS 6597 [sym_kPublic]; ACTIONS 6591 [sym_kStatic; sym_kVirtual; sym_kAbstract;
   sym_kDynamic; sym_kOverride; sym_kOverload; sym_kReintroduce; sym_kStdcall; sym_kCdecl;
   sym_kCppdecl; sym_kPascal; sym_kRegister; sym_kMwpascal]; ACTIONS 14081 [sym_kExternal];
   ACTIONS 6603 [sym_kMessage]; ACTIONS 6606 [sym_kDeprecated]; ACTIONS 6591 [sym_kExperimental;
   sym_kPlatform; sym_kUnimplemented; sym_kCvar]; ACTIONS 6609 [sym_kExport];
   ACTIONS 6591 [sym_kFar; sym_kNear; sym_kSafecall; sym_kAssembler; sym_kNostackframe;
   sym_kInterrupt; sym_kNoreturn; sym_kIocheck; sym_kLocal; sym_kHardfloat; sym_kSoftfloat;
   sym_kMs_abi_default; sym_kMs_abi_cdecl; sym_kSaveregisters; sym_kSysv_abi_default;
   sym_kSysv_abi_cdecl; sym_kVectorcall; sym_kVarargs; sym_kWinapi]; ACTIONS 6612 [sym_kAlias];
   ACTIONS 6584 [sym_kBegin; sym_kClass; sym_kConst; sym_kConstructor; sym_kDestructor;
   sym_kExports; sym_kFunction]; ACTIONS 6591 [sym_kInline]; ACTIONS 6584 [sym_kLabel;
   sym_kProcedure; sym_kResourcestring; sym_kThreadvar; sym_kType; sym_kUses; sym_kVar]].

(** State 2288. *)
Definition ts_parse_table_2288 : parse_row :=
  [STATE 2633 [sym__procAttribute]; STATE 14888 [sym_procAttribute];
   STATE 2287 [sym_procExternal; aux_sym_declVar_repeat2]; ACTIONS 6618 [ts_builtin_sym_end];
   ACTIONS 14084 [anon_sym_LBRACK]; ACTIONS 6618 [aux_sym_ppUsesBlock_token1];
   ACTIONS 3 [sym__space]; ACTIONS 5 [sym_ppDirective]; ACTIONS 3 [sym_comment];
   ACTIONS 6618 [sym_identifier]; ACTIONS 6625 [sym_kDefault; sym_kNodefault];
   ACTIONS 6628 [sym_kDispId]; ACTIONS 6618 [sym_kGeneric; sym_kOperator];
   ACTIONS 6631 [sym_kPublic]; ACTIONS 6625 [sym_kStatic; sym_kVirtual; sym_kAbstract;
   sym_kDynamic; sym_kOverride; sym_kOverload; sym_kReintroduce; sym_kStdcall; sym_kCdecl;
   sym_kCppdecl; sym_kPascal; sym_kRegister; sym_kMwpascal]; ACTIONS 13860 [sym_kExternal];
   ACTIONS 6634 [sym_kMessage]; ACTIONS 6637 [sym_kDeprecated]; ACTIONS 6625 [sym_kExperimental;
   sym_kPlatform; sym_kUnimplemented; sym_kCvar]; ACTIONS 6640 [sym_kExport];
   ACTIONS 6625 [sym_kFar; sym_kNear; sym_kSafecall; sym_kAssembler; sym_kNostackframe;
   sym_kInterrupt; sym_kNoreturn; sym_kIocheck; sym_kLocal; sym_kHardfloat; sym_kSoftfloat;
   sym_kMs_abi_default; sym_kMs_abi_cdecl; sym_kSaveregisters; sym_kSysv_abi_default;
   sym_kSysv_abi_cdecl; sym_kVectorcall; sym_kVarargs; sym_kWinapi]; ACTIONS 6643 [sym_kAlias];
   ACTIONS 6618 [sym_kBegin; sym_kClass; sym_kConst; sym_kConstructor; sym_kDestructor;
   sym_kExports; sym_kFunction]; ACTIONS 1016 [sym_kInline]; ACTIONS 6618 [sym_kLabel;
   sym_kProcedure; sym_kResourcestring; sym_kThreadvar; sym_kType; sym_kUses; sym_kVar]].

(** State 2289. *)
Definition ts_parse_table_2289 : parse_row :=
  [STATE 2633 [sym__procAttribute]; STATE 14888 [sym_procAttribute];
   STATE 2326 [sym_procExternal; aux_sym_declVar_repeat2]; ACTIONS 6677 [ts_builtin_sym_end];
   ACTIONS 14087 [anon_sym_LBRACK]; ACTIONS 6677 [aux_sym_ppUsesBlock_token1];
   ACTIONS 3 [sym__space]; ACTIONS 5 [sym_ppDirective]; ACTIONS 3 [sym_comment];
   ACTIONS 6677 [sym_identifier]; ACTIONS 6684 [sym_kDefault; sym_kNodefault];
   ACTIONS 6687 [sym_kDispId]; ACTIONS 6677 [sym_kGeneric; sym_kOperator];
   ACTIONS 6690 [sym_kPublic]; ACTIONS 6684 [sym_kStatic; sym_kVirtual; sym_kAbstract;
   sym_kDynamic; sym_kOverride; sym_kOverload; sym_kReintroduce; sym_kStdcall; sym_kCdecl;
   sym_kCppdecl; sym_kPascal; sym_kRegister; sym_kMwpascal]; ACTIONS 13860 [sym_kExternal];
   ACTIONS 6693 [sym_kMessage]; ACTIONS 6696 [sym_kDeprecated]; ACTIONS 6684 [sym_kExperimental;
   sym_kPlatform; sym_kUnimplemented; sym_kCvar]; ACTIONS 6699 [sym_kExport];
   ACTIONS 6684 [sym_kFar; sym_kNear; sym_kSafecall; sym_kAssembler; sym_kNostackframe;
   sym_kInterrupt; sym_kNoreturn; sym_kIocheck; sym_kLocal; sym_kHardfloat; sym_kSoftfloat;
   sym_kMs_abi_default; sym_kMs_abi_cdecl; sym_kSaveregisters; sym_kSysv_abi_default;
   sym_kSysv_abi_cdecl; sym_kVectorcall; sym_kVarargs; sym_kWinapi]; ACTIONS 6702 [sym_kAlias];
   ACTIONS 6677 [sym_kBegin; sym_kClass; sym_kConst; sym_kConstructor; sym_kDestructor;
   sym_kExports; sym_kFunction]; ACTIONS 1016 [sym_kInline]; ACTIONS 6677 [sym_kLabel;
   sym_kProcedure; sym_kResourcestring; sym_kThreadvar; sym_kType; sym_kUses; sym_kVar]].

(** State 2290. *)
Definition ts_parse_table_2290 : parse_row :=
  [STATE 2633 [sym__procAttribute]; STATE 14888 [sym_procAttribute];
   STATE 2287 [sym_procExternal; aux_sym_declVar_repeat2]; ACTIONS 6736 [ts_builtin_sym_end];
   ACTIONS 14090 [anon_sym_LBRACK]; ACTIONS 6736 [aux_sym_ppUsesBlock_token1];
   ACTIONS 3 [sym__space]; ACTIONS 5 [sym_ppDirective]; ACTIONS 3 [sym_comment];
   ACTIONS 6736 [sym_identifier]; ACTIONS 6743 [sym_kDefault; sym_kNodefault];
   ACTIONS 6746 [sym_kDispId]; ACTIONS 6736 [sym_kGeneric; sym_kOperator];
   ACTIONS 6749 [sym_kPublic]; ACTIONS 6743 [sym_kStatic; sym_kVirtual; sym_kAbstract;
   sym_kDynamic; sym_kOverride; sym_kOverload; sym_kReintroduce; sym_kStdcall; sym_kCdecl;
   sym_kCppdecl; sym_kPascal; sym_kRegister; sym_kMwpascal]; ACTIONS 13860 [sym_kExternal];
   ACTIONS 6752 [sym_kMessage]; ACTIONS 6755 [sym_kDeprecated]; ACTIONS 6743 [sym_kExperimental;
   sym_kPlatform; sym_kUnimplemented; sym_kCvar]; ACTIONS 6758 [sym_kExport];
   ACTIONS 6743 [sym_kFar; sym_kNear; sym_kSafecall; sym_kAssembler; sym_kNostackframe;
   sym_kInterrupt; sym_kNoreturn; sym_kIocheck; sym_kLocal; sym_kHardfloat; sym_kSoftfloat;
   sym_kMs_abi_default; sym_kMs_abi_cdecl; sym_kSaveregisters; sym_kSysv_abi_default;
   sym_kSysv_abi_cdecl; sym_kVectorcall; sym_kVarargs; sym_kWinapi]; ACTIONS 6761 [sym_kAlias];
   ACTIONS 6736 [sym_kBegin; sym_kClass; sym_kConst; sym_kConstructor; sym_kDestructor;
   sym_kExports; sym_kFunction]; ACTIONS 1016 [sym_kInline]; ACTIONS 6736 [sym_kLabel;
   sym_kProcedure; sym_kResourcestring; sym_kThreadvar; sym_kType; sym_kUses; sym_kVar]].

(** State 2291. *)
Definition ts_parse_table_2291 : parse_row :=
  [STATE 2633 [sym__procAttribute]; STATE 14888 [sym_procAttribute];
   STATE 2287 [sym_procExternal; aux_sym_declVar_repeat2]; ACTIONS 6767 [ts_builtin_sym_end];
   ACTIONS 14093 [anon_sym_LBRACK]; ACTIONS 6767 [aux_sym_ppUsesBlock_token1];
   ACTIONS 3 [sym__space]; ACTIONS 5 [sym_ppDirective]; ACTIONS 3 [sym_comment];
   ACTIONS 6767 [sym_identifier]; ACTIONS 6774 [sym_kDefault; sym_kNodefault];
   ACTIONS 6777 [sym_kDispId]; ACTIONS 6767 [sym_kGeneric; sym_kOperator];
   ACTIONS 6780 [sym_kPublic]; ACTIONS 6774 [sym_kStatic; sym_kVirtual; sym_kAbstract;
   sym_kDynamic; sym_kOverride; sym_kOverload; sym_kReintroduce; sym_kStdcall; sym_kCdecl;
   sym_kCppdecl; sym_kPascal; sym_kRegister; sym_kMwpascal]; ACTIONS 13860 [sym_kExternal];
   ACTIONS 6783 [sym_kMessage]; ACTIONS 6786 [sym_kDeprecated]; ACTIONS 6774 [sym_kExperimental;
   sym_kPlatform; sym_kUnimplemented; sym_kCvar]; ACTIONS 6789 [sym_kExport];
   ACTIONS 6774 [sym_kFar; sym_kNear; sym_kSafecall; sym_kAssembler; sym_kNostackframe;
   sym_kInterrupt; sym_kNoreturn; sym_kIocheck; sym_kLocal; sym_kHardfloat; sym_kSoftfloat;
   sym_kMs_abi_default; sym_kMs_abi_cdecl; sym_kSaveregisters; sym_kSysv_abi_default;
   sym_kSysv_abi_cdecl; sym_kVectorcall; sym_kVarargs; sym_kWinapi]; ACTIONS 6792 [sym_kAlias];
   ACTIONS 6767 [sym_kBegin; sym_kClass; sym_kConst; sym_kConstructor; sym_kDestructor;
   sym_kExports; sym_kFunction]; ACTIONS 1016 [sym_kInline]; ACTIONS 6767 [sym_kLabel;
   sym_kProcedure; sym_kResourcestring; sym_kThreadvar; sym_kType; sym_kUses; sym_kVar]].

(** State 2292. *)
Definition ts_parse_table_2292 : parse_row :=
  [STATE 2633 [sym__procAttribute]; STATE 14888 [sym_procAttribute];
   STATE 2328 [sym_procExternal; aux_sym_declVar_repeat2]; ACTIONS 6823 [ts_builtin_sym_end];
   ACTIONS 14096 [anon_sym_LBRACK]; ACTIONS 6823 [aux_sym_ppUsesBlock_token1];
   ACTIONS 3 [sym__space]; ACTIONS 5 [sym_ppDirective]; ACTIONS 3 [sym_comment];
   ACTIONS 6823 [sym_identifier]; ACTIONS 6830 [sym_kDefault; sym_kNodefault];
   ACTIONS 6833 [sym_kDispId]; ACTIONS 6823 [sym_kGeneric; sym_kOperator];
   ACTIONS 6836 [sym_kPublic]; ACTIONS 6830 [sym_kStatic; sym_kVirtual; sym_kAbstract;
   sym_kDynamic; sym_kOverride; sym_kOverload; sym_kReintroduce; sym_kStdcall; sym_kCdecl;
   sym_kCppdecl; sym_kPascal; sym_kRegister; sym_kMwpascal]; ACTIONS 13860 [sym_kExternal];
   ACTIONS 6839 [sym_kMessage]; ACTIONS 6842 [sym_kDeprecated]; ACTIONS 6830 [sym_kExperimental;
   sym_kPlatform; sym_kUnimplemented; sym_kCvar]; ACTIONS 6845 [sym_kExport];
   ACTIONS 6830 [sym_kFar; sym_kNear; sym_kSafecall; sym_kAssembler; sym_kNostackframe;
   sym_kInterrupt; sym_kNoreturn; sym_kIocheck; sym_kLocal; sym_kHardfloat; sym_kSoftfloat;
   sym_kMs_abi_default; sym_kMs_abi_cdecl; sym_kSaveregisters; sym_kSysv_abi_default;
   sym_kSysv_abi_cdecl; sym_kVectorcall; sym_kVarargs; sym_kWinapi]; ACTIONS 6848 [sym_kAlias];
   ACTIONS 6823 [sym_kBegin; sym_kClass; sym_kConst; sym_kConstructor; sym_kDestructor;
   sym_kExports; sym_kFunction]; ACTIONS 1016 [sym_kInline]; ACTIONS 6823 [sym_kLabel;
   sym_kProcedure; sym_kResourcestring; sym_kThreadvar; sym_kType; sym_kUses; sym_kVar]].

(** State 2293. *)
Definition ts_parse_table_2293 : parse_row :=
  [STATE 2633 [sym__procAttribute]; STATE 14888 [sym_procAttribute];
   STATE 2287 [sym_procExternal; aux_sym_declVar_repeat2]; ACTIONS 6854 [ts_builtin_sym_end];
   ACTIONS 14099 [anon_sym_LBRACK]; ACTIONS 6854 [aux_sym_ppUsesBlock_token1];
   ACTIONS 3 [sym__space]; ACTIONS 5 [sym_ppDirective]; ACTIONS 3 [sym_comment];
   ACTIONS 6854 [sym_identifier]; ACTIONS 6861 [sym_kDefault; sym_kNodefault];
   ACTIONS 6864 [sym_kDispId]; ACTIONS 6854 [sym_kGeneric; sym_kOperator];
   ACTIONS 6867 [sym_kPublic]; ACTIONS 6861 [sym_kStatic; sym_kVirtual; sym_kAbstract;
   sym_kDynamic; sym_kOverride; sym_kOverload; sym_kReintroduce; sym_kStdcall; sym_kCdecl;
   sym_kCppdecl; sym_kPascal; sym_kRegister; sym_kMwpascal]; ACTIONS 13860 [sym_kExternal];
   ACTIONS 6870 [sym_kMessage]; ACTIONS 6873 [sym_kDeprecated]; ACTIONS 6861 [sym_kExperimental;
   sym_kPlatform; sym_kUnimplemented; sym_kCvar]; ACTIONS 6876 [sym_kExport];
   ACTIONS 6861 [sym_kFar; sym_kNear; sym_kSafecall; sym_kAssembler; sym_kNostackframe;
   sym_kInterrupt; sym_kNoreturn; sym_kIocheck; sym_kLocal; sym_kHardfloat; sym_kSoftfloat;
   sym_kMs_abi_default; sym_kMs_abi_cdecl; sym_kSaveregisters; sym_kSysv_abi_default;
   sym_kSysv_abi_cdecl; sym_kVectorcall; sym_kVarargs; sym_kWinapi]; ACTIONS 6879 [sym_kAlias];
   ACTIONS 6854 [sym_kBegin; sym_kClass; sym_kConst; sym_kConstructor; sym_kDestructor;
   sym_kExports; sym_kFunction]; ACTIONS 1016 [sym_kInline]; ACTIONS 6854 [sym_kLabel;
   sym_kProcedure; sym_kResourcestring; sym_kThreadvar; sym_kType; sym_kUses; sym_kVar]].

(** State 2294. *)
Definition ts_parse_table_2294 : parse_row :=
  [STATE 2633 [sym__procAttribute]; STATE 14888 [sym_procAttribute];
   STATE 2333 [sym_procExternal; aux_sym_declVar_repeat2]; ACTIONS 6913 [ts_builtin_sym_end];
   ACTIONS 14102 [anon_sym_LBRACK]; ACTIONS 6913 [aux_sym_ppUsesBlock_token1];
   ACTIONS 3 [sym__space]; ACTIONS 5 [sym_ppDirective]; ACTIONS 3 [sym_comment];
   ACTIONS 6913 [sym_identifier]; ACTIONS 6920 [sym_kDefault; sym_kNodefault];
   ACTIONS 6923 [sym_kDispId]; ACTIONS 6913 [sym_kGeneric; sym_kOperator];
   ACTIONS 6926 [sym_kPublic]; ACTIONS 6920 [sym_kStatic; sym_kVirtual; sym_kAbstract;
   sym_kDynamic; sym_kOverride; sym_kOverload; sym_kReintroduce; sym_kStdcall; sym_kCdecl;
   sym_kCppdecl; sym_kPascal; sym_kRegister; sym_kMwpascal]; ACTIONS 13860 [sym_kExternal];
   ACTIONS 6929 [sym_kMessage]; ACTIONS 6932 [sym_kDeprecated]; ACTIONS 6920 [sym_kExperimental;
   sym_kPlatform; sym_kUnimplemented; sym_kCvar]; ACTIONS 6935 [sym_kExport];
   ACTIONS 6920 [sym_kFar; sym_kNear; sym_kSafecall; sym_kAssembler; sym_kNostackframe;
   sym_kInterrupt; sym_kNoreturn; sym_kIocheck; sym_kLocal; sym_kHardfloat; sym_kSoftfloat;
   sym_kMs_abi_default; sym_kMs_abi_cdecl; sym_kSaveregisters; sym_kSysv_abi_default;
   sym_kSysv_abi_cdecl; sym_kVectorcall; sym_kVarargs; sym_kWinapi]; ACTIONS 6938 [sym_kAlias];
   ACTIONS 6913 [sym_kBegin; sym_kClass; sym_kConst; sym_kConstructor; sym_kDestructor;
   sym_kExports; sym_kFunction]; ACTIONS 1016 [sym_kInline]; ACTIONS 6913 [sym_kLabel;
   sym_kProcedure; sym_kResourcestring; sym_kThreadvar; sym_kType; sym_kUses; sym_kVar]].

(** State 2295. *)
Definition ts_parse_table_2295 : parse_row :=
  [STATE 2633 [sym__procAttribute]; STATE 14888 [sym_procAttribute];
   STATE 2334 [sym_procExternal; aux_sym_declVar_repeat2]; ACTIONS 6944 [ts_builtin_sym_end];
   ACTIONS 14105 [anon_sym_LBRACK]; ACTIONS 6944 [aux_sym_ppUsesBlock_token1];
   ACTIONS 3 [sym__space]; ACTIONS 5 [sym_ppDirective]; ACTIONS 3 [sym_comment];
   ACTIONS 6944 [sym_identifier]; ACTIONS 6951 [sym_kDefault; sym_kNodefault];
   ACTIONS 6954 [sym_kDispId]; ACTIONS 6944 [sym_kGeneric; sym_kOperator];
   ACTIONS 6957 [sym_kPublic]; ACTIONS 6951 [sym_kStatic; sym_kVirtual; sym_kAbstract;
   sym_kDynamic; sym_kOverride; sym_kOverload; sym_kReintroduce; sym_kStdcall; sym_kCdecl;
   sym_kCppdecl; sym_kPascal; sym_kRegister; sym_kMwpascal]; ACTIONS 13860 [sym_kExternal];
   ACTIONS 6960 [sym_kMessage]; ACTIONS 6963 [sym_kDeprecated]; ACTIONS 6951 [sym_kExperimental;
   sym_kPlatform; sym_kUnimplemented; sym_kCvar]; ACTIONS 6966 [sym_kExport];
   ACTIONS 6951 [sym_kFar; sym_kNear; sym_kSafecall; sym_kAssembler; sym_kNostackframe;
   sym_kInterrupt; sym_kNoreturn; sym_kIocheck; sym_kLocal; sym_kHardfloat; sym_kSoftfloat;
   sym_kMs_abi_default; sym_kMs_abi_cdecl; sym_kSaveregisters; sym_kSysv_abi_default;
   sym_kSysv_abi_cdecl; sym_kVectorcall; sym_kVarargs; sym_kWinapi]; ACTIONS 6969 [sym_kAlias];
   ACTIONS 6944 [sym_kBegin; sym_kClass; sym_kConst; sym_kConstructor; sym_kDestructor;
   sym_kExports; sym_kFunction]; ACTIONS 1016 [sym_kInline]; ACTIONS 6944 [sym_kLabel;
   sym_kProcedure; sym_kResourcestring; sym_kThreadvar; sym_kType; sym_kUses; sym_kVar]].

(** State 2296. *)
Definition ts_parse_table_2296 : parse_row :=
  [ACTIONS 10614 [anon_sym_LBRACK; aux_sym_ppUsesBlock_token1]; ACTIONS 3 [sym__space];
   ACTIONS 5 [sym_ppDirective]; ACTIONS 3 [sym_comment]; ACTIONS 10614 [sym_identifier;
   sym_kDefault; sym_kNodefault; sym_kDispId; sym_kGeneric; sym_kOperator; sym_kPublic;
   sym_kStatic; sym_kVirtual; sym_kAbstract; sym_kDynamic; sym_kOverride; sym_kOverload;
   sym_kReintroduce; sym_kStdcall; sym_kCdecl; sym_kCppdecl; sym_kPascal; sym_kRegister;
   sym_kMwpascal; sym_kExternal; sym_kMessage; sym_kDeprecated; sym_kExperimental; sym_kPlatform;
   sym_kUnimplemented; sym_kCvar; sym_kExport; sym_kFar; sym_kNear; sym_kSafecall;
   sym_kAssembler; sym_kNostackframe; sym_kInterrupt; sym_kNoreturn; sym_kIocheck; sym_kLocal;
   sym_kHardfloat; sym_kSoftfloat; sym_kMs_abi_default; sym_kMs_abi_cdecl; sym_kSaveregisters;
   sym_kSysv_abi_default; sym_kSysv_abi_cdecl; sym_kVectorcall; sym_kVarargs; sym_kWinapi;
   sym_kAlias; sym_kClass; sym_kConst; sym_kConstructor; sym_kDestructor; sym_kEnd; sym_kExports;
   sym_kFinalization; sym_kFunction; sym_kImplementation; sym_kInitialization; sym_kInline;
   sym_kInterface; sym_kLabel; sym_kProcedure; sym_kProperty; sym_kResourcestring;
   sym_kThreadvar; sym_kType; sym_kUses; sym_kVar]].

(** State 2297. *)
Definition ts_parse_table_2297 : parse_row :=
  [ACTIONS 10566 [anon_sym_LBRACK; aux_sym_ppUsesBlock_token1]; ACTIONS 3 [sym__space];
   ACTIONS 5 [sym_ppDirective]; ACTIONS 3 [sym_comment]; ACTIONS 10566 [sym_identifier;
   sym_kDefault; sym_kNodefault; sym_kDispId; sym_kGeneric; sym_kOperator; sym_kPublished;
   sym_kPublic; sym_kProtected; sym_kPrivate; sym_kStrict; sym_kRequired; sym_kOptional;
   sym_kStatic; sym_kVirtual; sym_kAbstract; sym_kDynamic; sym_kOverride; sym_kOverload;
   sym_kReintroduce; sym_kStdcall; sym_kCdecl; sym_kCppdecl; sym_kPascal; sym_kRegister;
   sym_kMwpascal; sym_kExternal; sym_kMessage; sym_kDeprecated; sym_kExperimental; sym_kPlatform;
   sym_kUnimplemented; sym_kCvar; sym_kExport; sym_kFar; sym_kNear; sym_kSafecall;
   sym_kAssembler; sym_kNostackframe; sym_kInterrupt; sym_kNoreturn; sym_kIocheck; sym_kLocal;
   sym_kHardfloat; sym_kSoftfloat; sym_kMs_abi_default; sym_kMs_abi_cdecl; sym_kSaveregisters;
   sym_kSysv_abi_default; sym_kSysv_abi_cdecl; sym_kVectorcall; sym_kVarargs; sym_kWinapi;
   sym_kAlias; sym_kCase; sym_kClass; sym_kConst; sym_kConstructor; sym_kDestructor; sym_kEnd;
   sym_kFunction; sym_kInline; sym_kProcedure; sym_kProperty; sym_kResourcestring;
   sym_kThreadvar; sym_kType; sym_kVar]].

(** State 2298. *)
Definition ts_parse_table_2298 : parse_row :=
  [ACTIONS 10576 [anon_sym_LBRACK; aux_sym_ppUsesBlock_token1]; ACTIONS 3 [sym__space];
   ACTIONS 5 [sym_ppDirective]; ACTIONS 3 [sym_comment]; ACTIONS 10576 [sym_identifier;
   sym_kDefault; sym_kNodefault; sym_kDispId; sym_kGeneric; sym_kOperator; sym_kPublished;
   sym_kPublic; sym_kProtected; sym_kPrivate; sym_kStrict; sym_kRequired; sym_kOptional;
   sym_kStatic; sym_kVirtual; sym_kAbstract; sym_kDynamic; sym_kOverride; sym_kOverload;
   sym_kReintroduce; sym_kStdcall; sym_kCdecl; sym_kCppdecl; sym_kPascal; sym_kRegister;
   sym_kMwpascal; sym_kExternal; sym_kMessage; sym_kDeprecated; sym_kExperimental; sym_kPlatform;
   sym_kUnimplemented; sym_kCvar; sym_kExport; sym_kFar; sym_kNear; sym_kSafecall;
   sym_kAssembler; sym_kNostackframe; sym_kInterrupt; sym_kNoreturn; sym_kIocheck; sym_kLocal;
   sym_kHardfloat; sym_kSoftfloat; sym_kMs_abi_default; sym_kMs_abi_cdecl; sym_kSaveregisters;
   sym_kSysv_abi_default; sym_kSysv_abi_cdecl; sym_kVectorcall; sym_kVarargs; sym_kWinapi;
   sym_kAlias; sym_kCase; sym_kClass; sym_kConst; sym_kConstructor; sym_kDestructor; sym_kEnd;
   sym_kFunction; sym_kInline; sym_kProcedure; sym_kProperty; sym_kResourcestring;
   sym_kThreadvar; sym_kType; sym_kVar]].

(** State 2299. *)
Definition ts_parse_table_2299 : parse_row :=
  [ACTIONS 10590 [anon_sym_LBRACK; aux_sym_ppUsesBlock_token1]; ACTIONS 3 [sym__space];
   ACTIONS 5 [sym_ppDirective]; ACTIONS 3 [sym_comment]; ACTIONS 10590 [sym_identifier;
   sym_kDefault; sym_kNodefault; sym_kDispId; sym_kGeneric; sym_kOperator; sym_kPublished;
   sym_kPublic; sym_kProtected; sym_kPrivate; sym_kStrict; sym_kRequired; sym_kOptional;
   sym_kStatic; sym_kVirtual; sym_kAbstract; sym_kDynamic; sym_kOverride; sym_kOverload;
   sym_kReintroduce; sym_kStdcall; sym_kCdecl; sym_kCppdecl; sym_kPascal; sym_kRegister;
   sym_kMwpascal; sym_kExternal; sym_kMessage; sym_kDeprecated; sym_kExperimental; sym_kPlatform;
   sym_kUnimplemented; sym_kCvar; sym_kExport; sym_kFar; sym_kNear; sym_kSafecall;
   sym_kAssembler; sym_kNostackframe; sym_kInterrupt; sym_kNoreturn; sym_kIocheck; sym_kLocal;
   sym_kHardfloat; sym_kSoftfloat; sym_kMs_abi_default; sym_kMs_abi_cdecl; sym_kSaveregisters;
   sym_kSysv_abi_default; sym_kSysv_abi_cdecl; sym_kVectorcall; sym_kVarargs; sym_kWinapi;
   sym_kAlias; sym_kCase; sym_kClass; sym_kConst; sym_kConstructor; sym_kDestructor; sym_kEnd;
   sym_kFunction; sym_kInline; sym_kProcedure; sym_kProperty; sym_kResourcestring;
   sym_kThreadvar; sym_kType; sym_kVar]].

(** State 2300. *)
Definition ts_parse_table_2300 : parse_row :=
  [STATE 2633 [sym__procAttribute]; STATE 14888 [sym_procAttribute];
   STATE 2240 [sym_procExternal; aux_sym_declVar_repeat2]; ACTIONS 6972 [ts_builtin_sym_end];
   ACTIONS 14108 [anon_sym_LBRACK]; ACTIONS 6972 [aux_sym_ppUsesBlock_token1];
   ACTIONS 3 [sym__space]; ACTIONS 5 [sym_ppDirective]; ACTIONS 3 [sym_comment];
   ACTIONS 6972 [sym_identifier]; ACTIONS 6979 [sym_kDefault; sym_kNodefault];
   ACTIONS 6982 [sym_kDispId]; ACTIONS 6972 [sym_kGeneric; sym_kOperator];
   ACTIONS 6985 [sym_kPublic]; ACTIONS 6979 [sym_kStatic; sym_kVirtual; sym_kAbstract;
   sym_kDynamic; sym_kOverride; sym_kOverload; sym_kReintroduce; sym_kStdcall; sym_kCdecl;
   sym_kCppdecl; sym_kPascal; sym_kRegister; sym_kMwpascal]; ACTIONS 13860 [sym_kExternal];
   ACTIONS 6988 [sym_kMessage]; ACTIONS 6991 [sym_kDeprecated]; ACTIONS 6979 [sym_kExperimental;
   sym_kPlatform; sym_kUnimplemented; sym_kCvar]; ACTIONS 6994 [sym_kExport];
   ACTIONS 6979 [sym_kFar; sym_kNear; sym_kSafecall; sym_kAssembler; sym_kNostackframe;
   sym_kInterrupt; sym_kNoreturn; sym_kIocheck; sym_kLocal; sym_kHardfloat; sym_kSoftfloat;
   sym_kMs_abi_default; sym_kMs_abi_cdecl; sym_kSaveregisters; sym_kSysv_abi_default;
   sym_kSysv_abi_cdecl; sym_kVectorcall; sym_kVarargs; sym_kWinapi]; ACTIONS 6997 [sym_kAlias];
   ACTIONS 6972 [sym_kBegin; sym_kClass; sym_kConst; sym_kConstructor; sym_kDestructor;
   sym_kExports; sym_kFunction]; ACTIONS 1016 [sym_kInline]; ACTIONS 6972 [sym_kLabel;
   sym_kProcedure; sym_kResourcestring; sym_kThreadvar; sym_kType; sym_kUses; sym_kVar]].

(** State 2301. *)
Definition ts_parse_table_2301 : parse_row :=
  [STATE 2633 [sym__procAttribute]; STATE 14888 [sym_procAttribute];
   STATE 2287 [sym_procExternal; aux_sym_declVar_repeat2]; ACTIONS 7031 [ts_builtin_sym_end];
   ACTIONS 14111 [anon_sym_LBRACK]; ACTIONS 7031 [aux_sym_ppUsesBlock_token1];
   ACTIONS 3 [sym__space]; ACTIONS 5 [sym_ppDirective]; ACTIONS 3 [sym_comment];
   ACTIONS 7031 [sym_identifier]; ACTIONS 7038 [sym_kDefault; sym_kNodefault];
   ACTIONS 7041 [sym_kDispId]; ACTIONS 7031 [sym_kGeneric; sym_kOperator];
   ACTIONS 7044 [sym_kPublic]; ACTIONS 7038 [sym_kStatic; sym_kVirtual; sym_kAbstract;
   sym_kDynamic; sym_kOverride; sym_kOverload; sym_kReintroduce; sym_kStdcall; sym_kCdecl;
   sym_kCppdecl; sym_kPascal; sym_kRegister; sym_kMwpascal]; ACTIONS 13860 [sym_kExternal];
   ACTIONS 7047 [sym_kMessage]; ACTIONS 7050 [sym_kDeprecated]; ACTIONS 7038 [sym_kExperimental;
   sym_kPlatform; sym_kUnimplemented; sym_kCvar]; ACTIONS 7053 [sym_kExport];
   ACTIONS 7038 [sym_kFar; sym_kNear; sym_kSafecall; sym_kAssembler; sym_kNostackframe;
   sym_kInterrupt; sym_kNoreturn; sym_kIocheck; sym_kLocal; sym_kHardfloat; sym_kSoftfloat;
   sym_kMs_abi_default; sym_kMs_abi_cdecl; sym_kSaveregisters; sym_kSysv_abi_default;
   sym_kSysv_abi_cdecl; sym_kVectorcall; sym_kVarargs; sym_kWinapi]; ACTIONS 7056 [sym_kAlias];
   ACTIONS 7031 [sym_kBegin; sym_kClass; sym_kConst; sym_kConstructor; sym_kDestructor;
   sym_kExports; sym_kFunction]; ACTIONS 1016 [sym_kInline]; ACTIONS 7031 [sym_kLabel;
   sym_kProcedure; sym_kResourcestring; sym_kThreadvar; sym_kType; sym_kUses; sym_kVar]].

(** State 2302. *)
Definition ts_parse_table_2302 : parse_row :=
  [ACTIONS 10594 [anon_sym_LBRACK; aux_sym_ppUsesBlock_token1]; ACTIONS 3 [sym__space];
   ACTIONS 5 [sym_ppDirective]; ACTIONS 3 [sym_comment]; ACTIONS 10594 [sym_identifier;
   sym_kDefault; sym_kNodefault; sym_kDispId; sym_kGeneric; sym_kOperator; sym_kPublished;
   sym_kPublic; sym_kProtected; sym_kPrivate; sym_kStrict; sym_kRequired; sym_kOptional;
   sym_kStatic; sym_kVirtual; sym_kAbstract; sym_kDynamic; sym_kOverride; sym_kOverload;
   sym_kReintroduce; sym_kStdcall; sym_kCdecl; sym_kCppdecl; sym_kPascal; sym_kRegister;
   sym_kMwpascal; sym_kExternal; sym_kMessage; sym_kDeprecated; sym_kExperimental; sym_kPlatform;
   sym_kUnimplemented; sym_kCvar; sym_kExport; sym_kFar; sym_kNear; sym_kSafecall;
   sym_kAssembler; sym_kNostackframe; sym_kInterrupt; sym_kNoreturn; sym_kIocheck; sym_kLocal;
   sym_kHardfloat; sym_kSoftfloat; sym_kMs_abi_default; sym_kMs_abi_cdecl; sym_kSaveregisters;
   sym_kSysv_abi_default; sym_kSysv_abi_cdecl; sym_kVectorcall; sym_kVarargs; sym_kWinapi;
   sym_kAlias; sym_kCase; sym_kClass; sym_kConst; sym_kConstructor; sym_kDestructor; sym_kEnd;
   sym_kFunction; sym_kInline; sym_kProcedure; sym_kProperty; sym_kResourcestring;
   sym_kThreadvar; sym_kType; sym_kVar]].

(** State 2303. *)
Definition ts_parse_table_2303 : parse_row :=
  [STATE 2656 [sym__procAttribute]; STATE 14883 [sym_procAttribute];
   STATE 2338 [sym_procExternal; aux_sym_declVar_repeat2]; ACTIONS 14114 [anon_sym_LBRACK];
   ACTIONS 6795 [aux_sym_ppUsesBlock_token1]; ACTIONS 3 [sym__space];
   ACTIONS 5 [sym_ppDirective]; ACTIONS 3 [sym_comment]; ACTIONS 6795 [sym_identifier];
   ACTIONS 6802 [sym_kDefault; sym_kNodefault]; ACTIONS 6805 [sym_kDispId];
   ACTIONS 6795 [sym_kGeneric; sym_kOperator]; ACTIONS 6808 [sym_kPublic];
   ACTIONS 6802 [sym_kStatic; sym_kVirtual; sym_kAbstract; sym_kDynamic; sym_kOverride;
   sym_kOverload; sym_kReintroduce; sym_kStdcall; sym_kCdecl; sym_kCppdecl; sym_kPascal;
   sym_kRegister; sym_kMwpascal]; ACTIONS 13763 [sym_kExternal]; ACTIONS 6811 [sym_kMessage];
   ACTIONS 6814 [sym_kDeprecated]; ACTIONS 6802 [sym_kExperimental; sym_kPlatform;
   sym_kUnimplemented; sym_kCvar]; ACTIONS 6817 [sym_kExport]; ACTIONS 6802 [sym_kFar; sym_kNear;
   sym_kSafecall; sym_kAssembler; sym_kNostackframe; sym_kInterrupt; sym_kNoreturn; sym_kIocheck;
   sym_kLocal; sym_kHardfloat; sym_kSoftfloat; sym_kMs_abi_default; sym_kMs_abi_cdecl;
   sym_kSaveregisters; sym_kSysv_abi_default; sym_kSysv_abi_cdecl; sym_kVectorcall; sym_kVarargs;
   sym_kWinapi]; ACTIONS 6820 [sym_kAlias]; ACTIONS 6795 [sym_kBegin; sym_kClass; sym_kConst;
   sym_kConstructor; sym_kDestructor; sym_kEnd; sym_kExports; sym_kFunction];
   ACTIONS 1016 [sym_kInline]; ACTIONS 6795 [sym_kLabel; sym_kProcedure; sym_kResourcestring;
   sym_kThreadvar; sym_kType; sym_kUses; sym_kVar]].

(** State 2304. *)
Definition ts_parse_table_2304 : parse_row :=
  [STATE 2656 [sym__procAttribute]; STATE 14883 [sym_procAttribute];
   STATE 2339 [sym_procExternal; aux_sym_declVar_repeat2]; ACTIONS 14117 [anon_sym_LBRACK];
   ACTIONS 3755 [aux_sym_ppUsesBlock_token1]; ACTIONS 3 [sym__space];
   ACTIONS 5 [sym_ppDirective]; ACTIONS 3 [sym_comment]; ACTIONS 3755 [sym_identifier];
   ACTIONS 3762 [sym_kDefault; sym_kNodefault]; ACTIONS 3765 [sym_kDispId];
   ACTIONS 3755 [sym_kGeneric; sym_kOperator]; ACTIONS 3768 [sym_kPublic];
   ACTIONS 3762 [sym_kStatic; sym_kVirtual; sym_kAbstract; sym_kDynamic; sym_kOverride;
   sym_kOverload; sym_kReintroduce; sym_kStdcall; sym_kCdecl; sym_kCppdecl; sym_kPascal;
   sym_kRegister; sym_kMwpascal]; ACTIONS 13763 [sym_kExternal]; ACTIONS 3771 [sym_kMessage];
   ACTIONS 3774 [sym_kDeprecated]; ACTIONS 3762 [sym_kExperimental; sym_kPlatform;
   sym_kUnimplemented; sym_kCvar]; ACTIONS 3777 [sym_kExport]; ACTIONS 3762 [sym_kFar; sym_kNear;
   sym_kSafecall; sym_kAssembler; sym_kNostackframe; sym_kInterrupt; sym_kNoreturn; sym_kIocheck;
   sym_kLocal; sym_kHardfloat; sym_kSoftfloat; sym_kMs_abi_default; sym_kMs_abi_cdecl;
   sym_kSaveregisters; sym_kSysv_abi_default; sym_kSysv_abi_cdecl; sym_kVectorcall; sym_kVarargs;
   sym_kWinapi]; ACTIONS 3780 [sym_kAlias]; ACTIONS 3755 [sym_kBegin; sym_kClass; sym_kConst;
   sym_kConstructor; sym_kDestructor; sym_kEnd; sym_kExports; sym_kFunction];
   ACTIONS 1016 [sym_kInline]; ACTIONS 3755 [sym_kLabel; sym_kProcedure; sym_kResourcestring;
   sym_kThreadvar; sym_kType; sym_kUses; sym_kVar]].

(** State 2305. *)
Definition ts_parse_table_2305 : parse_row :=
  [STATE 2656 [sym__procAttribute]; STATE 14883 [sym_procAttribute];
   STATE 2338 [sym_procExternal; aux_sym_declVar_repeat2]; ACTIONS 14120 [anon_sym_LBRACK];
   ACTIONS 3727 [aux_sym_ppUsesBlock_token1]; ACTIONS 3 [sym__space];
   ACTIONS 5 [sym_ppDirective]; ACTIONS 3 [sym_comment]; ACTIONS 3727 [sym_identifier];
   ACTIONS 3734 [sym_kDefault; sym_kNodefault]; ACTIONS 3737 [sym_kDispId];
   ACTIONS 3727 [sym_kGeneric; sym_kOperator]; ACTIONS 3740 [sym_kPublic];
   ACTIONS 3734 [sym_kStatic; sym_kVirtual; sym_kAbstract; sym_kDynamic; sym_kOverride;
   sym_kOverload; sym_kReintroduce; sym_kStdcall; sym_kCdecl; sym_kCppdecl; sym_kPascal;
   sym_kRegister; sym_kMwpascal]; ACTIONS 13763 [sym_kExternal]; ACTIONS 3743 [sym_kMessage];
   ACTIONS 3746 [sym_kDeprecated]; ACTIONS 3734 [sym_kExperimental; sym_kPlatform;
   sym_kUnimplemented; sym_kCvar]; ACTIONS 3749 [sym_kExport]; ACTIONS 3734 [sym_kFar; sym_kNear;
   sym_kSafecall; sym_kAssembler; sym_kNostackframe; sym_kInterrupt; sym_kNoreturn; sym_kIocheck;
   sym_kLocal; sym_kHardfloat; sym_kSoftfloat; sym_kMs_abi_default; sym_kMs_abi_cdecl;
   sym_kSaveregisters; sym_kSysv_abi_default; sym_kSysv_abi_cdecl; sym_kVectorcall; sym_kVarargs;
   sym_kWinapi]; ACTIONS 3752 [sym_kAlias]; ACTIONS 3727 [sym_kBegin; sym_kClass; sym_kConst;
   sym_kConstructor; sym_kDestructor; sym_kEnd; sym_kExports; sym_kFunction];
   ACTIONS 1016 [sym_kInline]; ACTIONS 3727 [sym_kLabel; sym_kProcedure; sym_kResourcestring;
   sym_kThreadvar; sym_kType; sym_kUses; sym_kVar]].

(** State 2306. *)
Definition ts_parse_table_2306 : parse_row :=
  [STATE 2656 [sym__procAttribute]; STATE 14883 [sym_procAttribute];
   STATE 2150 [sym_procExternal; aux_sym_declVar_repeat2]; ACTIONS 14123 [anon_sym_LBRACK];
   ACTIONS 4478 [aux_sym_ppUsesBlock_token1]; ACTIONS 3 [sym__space];
   ACTIONS 5 [sym_ppDirective]; ACTIONS 3 [sym_comment]; ACTIONS 4478 [sym_identifier];
   ACTIONS 4485 [sym_kDefault; sym_kNodefault]; ACTIONS 4488 [sym_kDispId];
   ACTIONS 4478 [sym_kGeneric; sym_kOperator]; ACTIONS 4491 [sym_kPublic];
   ACTIONS 4485 [sym_kStatic; sym_kVirtual; sym_kAbstract; sym_kDynamic; sym_kOverride;
   sym_kOverload; sym_kReintroduce; sym_kStdcall; sym_kCdecl; sym_kCppdecl; sym_kPascal;
   sym_kRegister; sym_kMwpascal]; ACTIONS 13763 [sym_kExternal]; ACTIONS 4494 [sym_kMessage];
   ACTIONS 4497 [sym_kDeprecated]; ACTIONS 4485 [sym_kExperimental; sym_kPlatform;
   sym_kUnimplemented; sym_kCvar]; ACTIONS 4500 [sym_kExport]; ACTIONS 4485 [sym_kFar; sym_kNear;
   sym_kSafecall; sym_kAssembler; sym_kNostackframe; sym_kInterrupt; sym_kNoreturn; sym_kIocheck;
   sym_kLocal; sym_kHardfloat; sym_kSoftfloat; sym_kMs_abi_default; sym_kMs_abi_cdecl;
   sym_kSaveregisters; sym_kSysv_abi_default; sym_kSysv_abi_cdecl; sym_kVectorcall; sym_kVarargs;
   sym_kWinapi]; ACTIONS 4503 [sym_kAlias]; ACTIONS 4478 [sym_kBegin; sym_kClass; sym_kConst;
   sym_kConstructor; sym_kDestructor; sym_kEnd; sym_kExports; sym_kFunction];
   ACTIONS 1016 [sym_kInline]; ACTIONS 4478 [sym_kLabel; sym_kProcedure; sym_kResourcestring;
   sym_kThreadvar; sym_kType; sym_kUses; sym_kVar]].

(** State 2307. *)
Definition ts_parse_table_2307 : parse_row :=
  [STATE 2656 [sym__procAttribute]; STATE 14883 [sym_procAttribute];
   STATE 2151 [sym_procExternal; aux_sym_declVar_repeat2]; ACTIONS 14126 [anon_sym_LBRACK];
   ACTIONS 4506 [aux_sym_ppUsesBlock_token1]; ACTIONS 3 [sym__space];
   ACTIONS 5 [sym_ppDirective]; ACTIONS 3 [sym_comment]; ACTIONS 4506 [sym_identifier];
   ACTIONS 4513 [sym_kDefault; sym_kNodefault]; ACTIONS 4516 [sym_kDispId];
   ACTIONS 4506 [sym_kGeneric; sym_kOperator]; ACTIONS 4519 [sym_kPublic];
   ACTIONS 4513 [sym_kStatic; sym_kVirtual; sym_kAbstract; sym_kDynamic; sym_kOverride;
   sym_kOverload; sym_kReintroduce; sym_kStdcall; sym_kCdecl; sym_kCppdecl; sym_kPascal;
   sym_kRegister; sym_kMwpascal]; ACTIONS 13763 [sym_kExternal]; ACTIONS 4522 [sym_kMessage];
   ACTIONS 4525 [sym_kDeprecated]; ACTIONS 4513 [sym_kExperimental; sym_kPlatform;
   sym_kUnimplemented; sym_kCvar]; ACTIONS 4528 [sym_kExport]; ACTIONS 4513 [sym_kFar; sym_kNear;
   sym_kSafecall; sym_kAssembler; sym_kNostackframe; sym_kInterrupt; sym_kNoreturn; sym_kIocheck;
   sym_kLocal; sym_kHardfloat; sym_kSoftfloat; sym_kMs_abi_default; sym_kMs_abi_cdecl;
   sym_kSaveregisters; sym_kSysv_abi_default; sym_kSysv_abi_cdecl; sym_kVectorcall; sym_kVarargs;
   sym_kWinapi]; ACTIONS 4531 [sym_kAlias]; ACTIONS 4506 [sym_kBegin; sym_kClass; sym_kConst;
   sym_kConstructor; sym_kDestructor; sym_kEnd; sym_kExports; sym_kFunction];
   ACTIONS 1016 [sym_kInline]; ACTIONS 4506 [sym_kLabel; sym_kProcedure; sym_kResourcestring;
   sym_kThreadvar; sym_kType; sym_kUses; sym_kVar]].

(** State 2308. *)
Definition ts_parse_table_2308 : parse_row :=
  [STATE 2656 [sym__procAttribute]; STATE 14883 [sym_procAttribute];
   STATE 2153 [sym_procExternal; aux_sym_declVar_repeat2]; ACTIONS 14129 [anon_sym_LBRACK];
   ACTIONS 4534 [aux_sym_ppUsesBlock_token1]; ACTIONS 3 [sym__space];
   ACTIONS 5 [sym_ppDirective]; ACTIONS 3 [sym_comment]; ACTIONS 4534 [sym_identifier];
   ACTIONS 4541 [sym_kDefault; sym_kNodefault]; ACTIONS 4544 [sym_kDispId];
   ACTIONS 4534 [sym_kGeneric; sym_kOperator]; ACTIONS 4547 [sym_kPublic];
   ACTIONS 4541 [sym_kStatic; sym_kVirtual; sym_kAbstract; sym_kDynamic; sym_kOverride;
   sym_kOverload; sym_kReintroduce; sym_kStdcall; sym_kCdecl; sym_kCppdecl; sym_kPascal;
   sym_kRegister; sym_kMwpascal]; ACTIONS 13763 [sym_kExternal]; ACTIONS 4550 [sym_kMessage];
   ACTIONS 4553 [sym_kDeprecated]; ACTIONS 4541 [sym_kExperimental; sym_kPlatform;
   sym_kUnimplemented; sym_kCvar]; ACTIONS 4556 [sym_kExport]; ACTIONS 4541 [sym_kFar; sym_kNear;
   sym_kSafecall; sym_kAssembler; sym_kNostackframe; sym_kInterrupt; sym_kNoreturn; sym_kIocheck;
   sym_kLocal; sym_kHardfloat; sym_kSoftfloat; sym_kMs_abi_default; sym_kMs_abi_cdecl;
   sym_kSaveregisters; sym_kSysv_abi_default; sym_kSysv_abi_cdecl; sym_kVectorcall; sym_kVarargs;
   sym_kWinapi]; ACTIONS 4559 [sym_kAlias]; ACTIONS 4534 [sym_kBegin; sym_kClass; sym_kConst;
   sym_kConstructor; sym_kDestructor; sym_kEnd; sym_kExports; sym_kFunction];
   ACTIONS 1016 [sym_kInline]; ACTIONS 4534 [sym_kLabel; sym_kProcedure; sym_kResourcestring;
   sym_kThreadvar; sym_kType; sym_kUses; sym_kVar]].

(** State 2309. *)
Definition ts_parse_table_2309 : parse_row :=
  [STATE 2656 [sym__procAttribute]; STATE 14883 [sym_procAttribute];
   STATE 2157 [sym_procExternal; aux_sym_declVar_repeat2]; ACTIONS 14132 [anon_sym_LBRACK];
   ACTIONS 4593 [aux_sym_ppUsesBlock_token1]; ACTIONS 3 [sym__space];
   ACTIONS 5 [sym_ppDirective]; ACTIONS 3 [sym_comment]; ACTIONS 4593 [sym_identifier];
   ACTIONS 4600 [sym_kDefault; sym_kNodefault]; ACTIONS 4603 [sym_kDispId];
   ACTIONS 4593 [sym_kGeneric; sym_kOperator]; ACTIONS 4606 [sym_kPublic];
   ACTIONS 4600 [sym_kStatic; sym_kVirtual; sym_kAbstract; sym_kDynamic; sym_kOverride;
   sym_kOverload; sym_kReintroduce; sym_kStdcall; sym_kCdecl; sym_kCppdecl; sym_kPascal;
   sym_kRegister; sym_kMwpascal]; ACTIONS 13763 [sym_kExternal]; ACTIONS 4609 [sym_kMessage];
   ACTIONS 4612 [sym_kDeprecated]; ACTIONS 4600 [sym_kExperimental; sym_kPlatform;
   sym_kUnimplemented; sym_kCvar]; ACTIONS 4615 [sym_kExport]; ACTIONS 4600 [sym_kFar; sym_kNear;
   sym_kSafecall; sym_kAssembler; sym_kNostackframe; sym_kInterrupt; sym_kNoreturn; sym_kIocheck;
   sym_kLocal; sym_kHardfloat; sym_kSoftfloat; sym_kMs_abi_default; sym_kMs_abi_cdecl;
   sym_kSaveregisters; sym_kSysv_abi_default; sym_kSysv_abi_cdecl; sym_kVectorcall; sym_kVarargs;
   sym_kWinapi]; ACTIONS 4618 [sym_kAlias]; ACTIONS 4593 [sym_kBegin; sym_kClass; sym_kConst;
   sym_kConstructor; sym_kDestructor; sym_kEnd; sym_kExports; sym_kFunction];
   ACTIONS 1016 [sym_kInline]; ACTIONS 4593 [sym_kLabel; sym_kProcedure; sym_kResourcestring;
   sym_kThreadvar; sym_kType; sym_kUses; sym_kVar]].

(** State 2310. *)
Definition ts_parse_table_2310 : parse_row :=
  [STATE 2656 [sym__procAttribute]; STATE 14883 [sym_procAttribute];
   STATE 2159 [sym_procExternal; aux_sym_declVar_repeat2]; ACTIONS 14135 [anon_sym_LBRACK];
   ACTIONS 4761 [aux_sym_ppUsesBlock_token1]; ACTIONS 3 [sym__space];
   ACTIONS 5 [sym_ppDirective]; ACTIONS 3 [sym_comment]; ACTIONS 4761 [sym_identifier];
   ACTIONS 4768 [sym_kDefault; sym_kNodefault]; ACTIONS 4771 [sym_kDispId];
   ACTIONS 4761 [sym_kGeneric; sym_kOperator]; ACTIONS 4774 [sym_kPublic];
   ACTIONS 4768 [sym_kStatic; sym_kVirtual; sym_kAbstract; sym_kDynamic; sym_kOverride;
   sym_kOverload; sym_kReintroduce; sym_kStdcall; sym_kCdecl; sym_kCppdecl; sym_kPascal;
   sym_kRegister; sym_kMwpascal]; ACTIONS 13763 [sym_kExternal]; ACTIONS 4777 [sym_kMessage];
   ACTIONS 4780 [sym_kDeprecated]; ACTIONS 4768 [sym_kExperimental; sym_kPlatform;
   sym_kUnimplemented; sym_kCvar]; ACTIONS 4783 [sym_kExport]; ACTIONS 4768 [sym_kFar; sym_kNear;
   sym_kSafecall; sym_kAssembler; sym_kNostackframe; sym_kInterrupt; sym_kNoreturn; sym_kIocheck;
   sym_kLocal; sym_kHardfloat; sym_kSoftfloat; sym_kMs_abi_default; sym_kMs_abi_cdecl;
   sym_kSaveregisters; sym_kSysv_abi_default; sym_kSysv_abi_cdecl; sym_kVectorcall; sym_kVarargs;
   sym_kWinapi]; ACTIONS 4786 [sym_kAlias]; ACTIONS 4761 [sym_kBegin; sym_kClass; sym_kConst;
   sym_kConstructor; sym_kDestructor; sym_kEnd; sym_kExports; sym_kFunction];
   ACTIONS 1016 [sym_kInline]; ACTIONS 4761 [sym_kLabel; sym_kProcedure; sym_kResourcestring;
   sym_kThreadvar; sym_kType; sym_kUses; sym_kVar]].

(** State 2311. *)
Definition ts_parse_table_2311 : parse_row :=
  [STATE 2633 [sym__procAttribute]; STATE 14888 [sym_procAttribute];
   STATE 2276 [sym_procExternal; aux_sym_declVar_repeat2]; ACTIONS 7090 [ts_builtin_sym_end];
   ACTIONS 14138 [anon_sym_LBRACK]; ACTIONS 7090 [aux_sym_ppUsesBlock_token1];
   ACTIONS 3 [sym__space]; ACTIONS 5 [sym_ppDirective]; ACTIONS 3 [sym_comment];
   ACTIONS 7090 [sym_identifier]; ACTIONS 7097 [sym_kDefault; sym_kNodefault];
   ACTIONS 7100 [sym_kDispId]; ACTIONS 7090 [sym_kGeneric; sym_kOperator];
   ACTIONS 7103 [sym_kPublic]; ACTIONS 7097 [sym_kStatic; sym_kVirtual; sym_kAbstract;
   sym_kDynamic; sym_kOverride; sym_kOverload; sym_kReintroduce; sym_kStdcall; sym_kCdecl;
   sym_kCppdecl; sym_kPascal; sym_kRegister; sym_kMwpascal]; ACTIONS 13860 [sym_kExternal];
   ACTIONS 7106 [sym_kMessage]; ACTIONS 7109 [sym_kDeprecated]; ACTIONS 7097 [sym_kExperimental;
   sym_kPlatform; sym_kUnimplemented; sym_kCvar]; ACTIONS 7112 [sym_kExport];
   ACTIONS 7097 [sym_kFar; sym_kNear; sym_kSafecall; sym_kAssembler; sym_kNostackframe;
   sym_kInterrupt; sym_kNoreturn; sym_kIocheck; sym_kLocal; sym_kHardfloat; sym_kSoftfloat;
   sym_kMs_abi_default; sym_kMs_abi_cdecl; sym_kSaveregisters; sym_kSysv_abi_default;
   sym_kSysv_abi_cdecl; sym_kVectorcall; sym_kVarargs; sym_kWinapi]; ACTIONS 7115 [sym_kAlias];
   ACTIONS 7090 [sym_kBegin; sym_kClass; sym_kConst; sym_kConstructor; sym_kDestructor;
   sym_kExports; sym_kFunction]; ACTIONS 1016 [sym_kInline]; ACTIONS 7090 [sym_kLabel;
   sym_kProcedure; sym_kResourcestring; sym_kThreadvar; sym_kType; sym_kUses; sym_kVar]].

(** State 2312. *)
Definition ts_parse_table_2312 : parse_row :=
  [STATE 2633 [sym__procAttribute]; STATE 14888 [sym_procAttribute];
   STATE 2287 [sym_procExternal; aux_sym_declVar_repeat2]; ACTIONS 7118 [ts_builtin_sym_end];
   ACTIONS 14141 [anon_sym_LBRACK]; ACTIONS 7118 [aux_sym_ppUsesBlock_token1];
   ACTIONS 3 [sym__space]; ACTIONS 5 [sym_ppDirective]; ACTIONS 3 [sym_comment];
   ACTIONS 7118 [sym_identifier]; ACTIONS 7125 [sym_kDefault; sym_kNodefault];
   ACTIONS 7128 [sym_kDispId]; ACTIONS 7118 [sym_kGeneric; sym_kOperator];
   ACTIONS 7131 [sym_kPublic]; ACTIONS 7125 [sym_kStatic; sym_kVirtual; sym_kAbstract;
   sym_kDynamic; sym_kOverride; sym_kOverload; sym_kReintroduce; sym_kStdcall; sym_kCdecl;
   sym_kCppdecl; sym_kPascal; sym_kRegister; sym_kMwpascal]; ACTIONS 13860 [sym_kExternal];
   ACTIONS 7134 [sym_kMessage]; ACTIONS 7137 [sym_kDeprecated]; ACTIONS 7125 [sym_kExperimental;
   sym_kPlatform; sym_kUnimplemented; sym_kCvar]; ACTIONS 7140 [sym_kExport];
   ACTIONS 7125 [sym_kFar; sym_kNear; sym_kSafecall; sym_kAssembler; sym_kNostackframe;
   sym_kInterrupt; sym_kNoreturn; sym_kIocheck; sym_kLocal; sym_kHardfloat; sym_kSoftfloat;
   sym_kMs_abi_default; sym_kMs_abi_cdecl; sym_kSaveregisters; sym_kSysv_abi_default;
   sym_kSysv_abi_cdecl; sym_kVectorcall; sym_kVarargs; sym_kWinapi]; ACTIONS 7143 [sym_kAlias];
   ACTIONS 7118 [sym_kBegin; sym_kClass; sym_kConst; sym_kConstructor; sym_kDestructor;
   sym_kExports; sym_kFunction]; ACTIONS 1016 [sym_kInline]; ACTIONS 7118 [sym_kLabel;
   sym_kProcedure; sym_kResourcestring; sym_kThreadvar; sym_kType; sym_kUses; sym_kVar]].

(** State 2313. *)
Definition ts_parse_table_2313 : parse_row :=
  [STATE 2633 [sym__procAttribute]; STATE 14888 [sym_procAttribute];
   STATE 2242 [sym_procExternal; aux_sym_declVar_repeat2]; ACTIONS 7177 [ts_builtin_sym_end];
   ACTIONS 14144 [anon_sym_LBRACK]; ACTIONS 7177 [aux_sym_ppUsesBlock_token1];
   ACTIONS 3 [sym__space]; ACTIONS 5 [sym_ppDirective]; ACTIONS 3 [sym_comment];
   ACTIONS 7177 [sym_identifier]; ACTIONS 7184 [sym_kDefault; sym_kNodefault];
   ACTIONS 7187 [sym_kDispId]; ACTIONS 7177 [sym_kGeneric; sym_kOperator];
   ACTIONS 7190 [sym_kPublic]; ACTIONS 7184 [sym_kStatic; sym_kVirtual; sym_kAbstract;
   sym_kDynamic; sym_kOverride; sym_kOverload; sym_kReintroduce; sym_kStdcall; sym_kCdecl;
   sym_kCppdecl; sym_kPascal; sym_kRegister; sym_kMwpascal]; ACTIONS 13860 [sym_kExternal];
   ACTIONS 7193 [sym_kMessage]; ACTIONS 7196 [sym_kDeprecated]; ACTIONS 7184 [sym_kExperimental;
   sym_kPlatform; sym_kUnimplemented; sym_kCvar]; ACTIONS 7199 [sym_kExport];
   ACTIONS 7184 [sym_kFar; sym_kNear; sym_kSafecall; sym_kAssembler; sym_kNostackframe;
   sym_kInterrupt; sym_kNoreturn; sym_kIocheck; sym_kLocal; sym_kHardfloat; sym_kSoftfloat;
   sym_kMs_abi_default; sym_kMs_abi_cdecl; sym_kSaveregisters; sym_kSysv_abi_default;
   sym_kSysv_abi_cdecl; sym_kVectorcall; sym_kVarargs; sym_kWinapi]; ACTIONS 7202 [sym_kAlias];
   ACTIONS 7177 [sym_kBegin; sym_kClass; sym_kConst; sym_kConstructor; sym_kDestructor;
   sym_kExports; sym_kFunction]; ACTIONS 1016 [sym_kInline]; ACTIONS 7177 [sym_kLabel;
   sym_kProcedure; sym_kResourcestring; sym_kThreadvar; sym_kType; sym_kUses; sym_kVar]].

(** State 2314. *)
Definition ts_parse_table_2314 : parse_row :=
  [ACTIONS 10594 [anon_sym_LBRACK; aux_sym_ppUsesBlock_token1]; ACTIONS 3 [sym__space];
   ACTIONS 5 [sym_ppDirective]; ACTIONS 3 [sym_comment]; ACTIONS 10594 [sym_identifier;
   sym_kDefault; sym_kNodefault; sym_kDispId; sym_kGeneric; sym_kOperator; sym_kPublished;
   sym_kPublic; sym_kProtected; sym_kPrivate; sym_kStrict; sym_kRequired; sym_kOptional;
   sym_kStatic; sym_kVirtual; sym_kAbstract; sym_kDynamic; sym_kOverride; sym_kOverload;
   sym_kReintroduce; sym_kStdcall; sym_kCdecl; sym_kCppdecl; sym_kPascal; sym_kRegister;
   sym_kMwpascal; sym_kExternal; sym_kMessage; sym_kDeprecated; sym_kExperimental; sym_kPlatform;
   sym_kUnimplemented; sym_kCvar; sym_kExport; sym_kFar; sym_kNear; sym_kSafecall;
   sym_kAssembler; sym_kNostackframe; sym_kInterrupt; sym_kNoreturn; sym_kIocheck; sym_kLocal;
   sym_kHardfloat; sym_kSoftfloat; sym_kMs_abi_default; sym_kMs_abi_cdecl; sym_kSaveregisters;
   sym_kSysv_abi_default; sym_kSysv_abi_cdecl; sym_kVectorcall; sym_kVarargs; sym_kWinapi;
   sym_kAlias; sym_kCase; sym_kClass; sym_kConst; sym_kConstructor; sym_kDestructor; sym_kEnd;
   sym_kFunction; sym_kInline; sym_kProcedure; sym_kProperty; sym_kResourcestring;
   sym_kThreadvar; sym_kType; sym_kVar]].

(** State 2315. *)
Definition ts_parse_table_2315 : parse_row :=
  [ACTIONS 10566 [anon_sym_LBRACK; aux_sym_ppUsesBlock_token1]; ACTIONS 3 [sym__space];
   ACTIONS 5 [sym_ppDirective]; ACTIONS 3 [sym_comment]; ACTIONS 10566 [sym_identifier;
   sym_kDefault; sym_kNodefault; sym_kDispId; sym_kGeneric; sym_kOperator; sym_kPublic;
   sym_kStatic; sym_kVirtual; sym_kAbstract; sym_kDynamic; sym_kOverride; sym_kOverload;
   sym_kReintroduce; sym_kStdcall; sym_kCdecl; sym_kCppdecl; sym_kPascal; sym_kRegister;
   sym_kMwpascal; sym_kExternal; sym_kMessage; sym_kDeprecated; sym_kExperimental; sym_kPlatform;
   sym_kUnimplemented; sym_kCvar; sym_kExport; sym_kFar; sym_kNear; sym_kSafecall;
   sym_kAssembler; sym_kNostackframe; sym_kInterrupt; sym_kNoreturn; sym_kIocheck; sym_kLocal;
   sym_kHardfloat; sym_kSoftfloat; sym_kMs_abi_default; sym_kMs_abi_cdecl; sym_kSaveregisters;
   sym_kSysv_abi_default; sym_kSysv_abi_cdecl; sym_kVectorcall; sym_kVarargs; sym_kWinapi;
   sym_kAlias; sym_kBegin; sym_kClass; sym_kConst; sym_kConstructor; sym_kDestructor; sym_kEnd;
   sym_kExports; sym_kFinalization; sym_kFunction; sym_kImplementation; sym_kInitialization;
   sym_kInline; sym_kInterface; sym_kLabel; sym_kProcedure; sym_kResourcestring; sym_kThreadvar;
   sym_kType; sym_kUses; sym_kVar]].

(** State 2316. *)
Definition ts_parse_table_2316 : parse_row :=
  [STATE 2630 [sym__procAttribute]; STATE 14946 [sym_procAttribute];
   STATE 2340 [sym_procExternal; aux_sym_declVar_repeat2]; ACTIONS 14147 [anon_sym_LBRACK];
   ACTIONS 3883 [aux_sym_ppUsesBlock_token1]; ACTIONS 3 [sym__space];
   ACTIONS 5 [sym_ppDirective]; ACTIONS 3 [sym_comment]; ACTIONS 3883 [sym_identifier];
   ACTIONS 3890 [sym_kDefault; sym_kNodefault]; ACTIONS 3893 [sym_kDispId];
   ACTIONS 3883 [sym_kGeneric; sym_kOperator]; ACTIONS 3896 [sym_kPublic];
   ACTIONS 3890 [sym_kStatic; sym_kVirtual; sym_kAbstract; sym_kDynamic; sym_kOverride;
   sym_kOverload; sym_kReintroduce; sym_kStdcall; sym_kCdecl; sym_kCppdecl; sym_kPascal;
   sym_kRegister; sym_kMwpascal]; ACTIONS 13801 [sym_kExternal]; ACTIONS 3899 [sym_kMessage];
   ACTIONS 3902 [sym_kDeprecated]; ACTIONS 3890 [sym_kExperimental; sym_kPlatform;
   sym_kUnimplemented; sym_kCvar]; ACTIONS 3905 [sym_kExport]; ACTIONS 3890 [sym_kFar; sym_kNear;
   sym_kSafecall; sym_kAssembler; sym_kNostackframe; sym_kInterrupt; sym_kNoreturn; sym_kIocheck;
   sym_kLocal; sym_kHardfloat; sym_kSoftfloat; sym_kMs_abi_default; sym_kMs_abi_cdecl;
   sym_kSaveregisters; sym_kSysv_abi_default; sym_kSysv_abi_cdecl; sym_kVectorcall; sym_kVarargs;
   sym_kWinapi]; ACTIONS 3908 [sym_kAlias]; ACTIONS 3883 [sym_kAsm; sym_kBegin; sym_kClass;
   sym_kConst; sym_kConstructor; sym_kDestructor; sym_kExports; sym_kFunction];
   ACTIONS 1016 [sym_kInline]; ACTIONS 3883 [sym_kLabel; sym_kProcedure; sym_kResourcestring;
   sym_kThreadvar; sym_kType; sym_kUses; sym_kVar]].

(** State 2317. *)
Definition ts_parse_table_2317 : parse_row :=
  [STATE 2630 [sym__procAttribute]; STATE 14946 [sym_procAttribute];
   STATE 2340 [sym_procExternal; aux_sym_declVar_repeat2]; ACTIONS 14150 [anon_sym_LBRACK];
   ACTIONS 3942 [aux_sym_ppUsesBlock_token1]; ACTIONS 3 [sym__space];
   ACTIONS 5 [sym_ppDirective]; ACTIONS 3 [sym_comment]; ACTIONS 3942 [sym_identifier];
   ACTIONS 3949 [sym_kDefault; sym_kNodefault]; ACTIONS 3952 [sym_kDispId];
   ACTIONS 3942 [sym_kGeneric; sym_kOperator]; ACTIONS 3955 [sym_kPublic];
   ACTIONS 3949 [sym_kStatic; sym_kVirtual; sym_kAbstract; sym_kDynamic; sym_kOverride;
   sym_kOverload; sym_kReintroduce; sym_kStdcall; sym_kCdecl; sym_kCppdecl; sym_kPascal;
   sym_kRegister; sym_kMwpascal]; ACTIONS 13801 [sym_kExternal]; ACTIONS 3958 [sym_kMessage];
   ACTIONS 3961 [sym_kDeprecated]; ACTIONS 3949 [sym_kExperimental; sym_kPlatform;
   sym_kUnimplemented; sym_kCvar]; ACTIONS 3964 [sym_kExport]; ACTIONS 3949 [sym_kFar; sym_kNear;
   sym_kSafecall; sym_kAssembler; sym_kNostackframe; sym_kInterrupt; sym_kNoreturn; sym_kIocheck;
   sym_kLocal; sym_kHardfloat; sym_kSoftfloat; sym_kMs_abi_default; sym_kMs_abi_cdecl;
   sym_kSaveregisters; sym_kSysv_abi_default; sym_kSysv_abi_cdecl; sym_kVectorcall; sym_kVarargs;
   sym_kWinapi]; ACTIONS 3967 [sym_kAlias]; ACTIONS 3942 [sym_kAsm; sym_kBegin; sym_kClass;
   sym_kConst; sym_kConstructor; sym_kDestructor; sym_kExports; sym_kFunction];
   ACTIONS 1016 [sym_kInline]; ACTIONS 3942 [sym_kLabel; sym_kProcedure; sym_kResourcestring;
   sym_kThreadvar; sym_kType; sym_kUses; sym_kVar]].

(** State 2318. *)
Definition ts_parse_table_2318 : parse_row :=
  [STATE 2630 [sym__procAttribute]; STATE 14946 [sym_procAttribute];
   STATE 2200 [sym_procExternal; aux_sym_declVar_repeat2]; ACTIONS 14153 [anon_sym_LBRACK];
   ACTIONS 3970 [aux_sym_ppUsesBlock_token1]; ACTIONS 3 [sym__space];
   ACTIONS 5 [sym_ppDirective]; ACTIONS 3 [sym_comment]; ACTIONS 3970 [sym_identifier];
   ACTIONS 3977 [sym_kDefault; sym_kNodefault]; ACTIONS 3980 [sym_kDispId];
   ACTIONS 3970 [sym_kGeneric; sym_kOperator]; ACTIONS 3983 [sym_kPublic];
   ACTIONS 3977 [sym_kStatic; sym_kVirtual; sym_kAbstract; sym_kDynamic; sym_kOverride;
   sym_kOverload; sym_kReintroduce; sym_kStdcall; sym_kCdecl; sym_kCppdecl; sym_kPascal;
   sym_kRegister; sym_kMwpascal]; ACTIONS 13801 [sym_kExternal]; ACTIONS 3986 [sym_kMessage];
   ACTIONS 3989 [sym_kDeprecated]; ACTIONS 3977 [sym_kExperimental; sym_kPlatform;
   sym_kUnimplemented; sym_kCvar]; ACTIONS 3992 [sym_kExport]; ACTIONS 3977 [sym_kFar; sym_kNear;
   sym_kSafecall; sym_kAssembler; sym_kNostackframe; sym_kInterrupt; sym_kNoreturn; sym_kIocheck;
   sym_kLocal; sym_kHardfloat; sym_kSoftfloat; sym_kMs_abi_default; sym_kMs_abi_cdecl;
   sym_kSaveregisters; sym_kSysv_abi_default; sym_kSysv_abi_cdecl; sym_kVectorcall; sym_kVarargs;
   sym_kWinapi]; ACTIONS 3995 [sym_kAlias]; ACTIONS 3970 [sym_kAsm; sym_kBegin; sym_kClass;
   sym_kConst; sym_kConstructor; sym_kDestructor; sym_kExports; sym_kFunction];
   ACTIONS 1016 [sym_kInline]; ACTIONS 3970 [sym_kLabel; sym_kProcedure; sym_kResourcestring;
   sym_kThreadvar; sym_kType; sym_kUses; sym_kVar]].

(** State 2319. *)
Definition ts_parse_table_2319 : parse_row :=
  [ACTIONS 10614 [anon_sym_LBRACK; aux_sym_ppUsesBlock_token1]; ACTIONS 3 [sym__space];
   ACTIONS 5 [sym_ppDirective]; ACTIONS 3 [sym_comment]; ACTIONS 10614 [sym_identifier;
   sym_kDefault; sym_kNodefault; sym_kDispId; sym_kGeneric; sym_kOperator; sym_kPublished;
   sym_kPublic; sym_kProtected; sym_kPrivate; sym_kStrict; sym_kRequired; sym_kOptional;
   sym_kStatic; sym_kVirtual; sym_kAbstract; sym_kDynamic; sym_kOverride; sym_kOverload;
   sym_kReintroduce; sym_kStdcall; sym_kCdecl; sym_kCppdecl; sym_kPascal; sym_kRegister;
   sym_kMwpascal; sym_kExternal; sym_kMessage; sym_kDeprecated; sym_kExperimental; sym_kPlatform;
   sym_kUnimplemented; sym_kCvar; sym_kExport; sym_kFar; sym_kNear; sym_kSafecall;
   sym_kAssembler; sym_kNostackframe; sym_kInterrupt; sym_kNoreturn; sym_kIocheck; sym_kLocal;
   sym_kHardfloat; sym_kSoftfloat; sym_kMs_abi_default; sym_kMs_abi_cdecl; sym_kSaveregisters;
   sym_kSysv_abi_default; sym_kSysv_abi_cdecl; sym_kVectorcall; sym_kVarargs; sym_kWinapi;
   sym_kAlias; sym_kCase; sym_kClass; sym_kConst; sym_kConstructor; sym_kDestructor; sym_kEnd;
   sym_kFunction; sym_kInline; sym_kProcedure; sym_kProperty; sym_kResourcestring;
   sym_kThreadvar; sym_kType; sym_kVar]].

(** State 2320. *)
Definition ts_parse_table_2320 : parse_row :=
  [STATE 2630 [sym__procAttribute]; STATE 14946 [sym_procAttribute];
   STATE 2340 [sym_procExternal; aux_sym_declVar_repeat2]; ACTIONS 14156 [anon_sym_LBRACK];
   ACTIONS 4057 [aux_sym_ppUsesBlock_token1]; ACTIONS 3 [sym__space];
   ACTIONS 5 [sym_ppDirective]; ACTIONS 3 [sym_comment]; ACTIONS 4057 [sym_identifier];
   ACTIONS 4064 [sym_kDefault; sym_kNodefault]; ACTIONS 4067 [sym_kDispId];
   ACTIONS 4057 [sym_kGeneric; sym_kOperator]; ACTIONS 4070 [sym_kPublic];
   ACTIONS 4064 [sym_kStatic; sym_kVirtual; sym_kAbstract; sym_kDynamic; sym_kOverride;
   sym_kOverload; sym_kReintroduce; sym_kStdcall; sym_kCdecl; sym_kCppdecl; sym_kPascal;
   sym_kRegister; sym_kMwpascal]; ACTIONS 13801 [sym_kExternal]; ACTIONS 4073 [sym_kMessage];
   ACTIONS 4076 [sym_kDeprecated]; ACTIONS 4064 [sym_kExperimental; sym_kPlatform;
   sym_kUnimplemented; sym_kCvar]; ACTIONS 4079 [sym_kExport]; ACTIONS 4064 [sym_kFar; sym_kNear;
   sym_kSafecall; sym_kAssembler; sym_kNostackframe; sym_kInterrupt; sym_kNoreturn; sym_kIocheck;
   sym_kLocal; sym_kHardfloat; sym_kSoftfloat; sym_kMs_abi_default; sym_kMs_abi_cdecl;
   sym_kSaveregisters; sym_kSysv_abi_default; sym_kSysv_abi_cdecl; sym_kVectorcall; sym_kVarargs;
   sym_kWinapi]; ACTIONS 4082 [sym_kAlias]; ACTIONS 4057 [sym_kAsm; sym_kBegin; sym_kClass;
   sym_kConst; sym_kConstructor; sym_kDestructor; sym_kExports; sym_kFunction];
   ACTIONS 1016 [sym_kInline]; ACTIONS 4057 [sym_kLabel; sym_kProcedure; sym_kResourcestring;
   sym_kThreadvar; sym_kType; sym_kUses; sym_kVar]].

(** State 2321. *)
Definition ts_parse_table_2321 : parse_row :=
  [STATE 2633 [sym__procAttribute]; STATE 14888 [sym_procAttribute];
   STATE 2287 [sym_procExternal; aux_sym_declVar_repeat2]; ACTIONS 3883 [ts_builtin_sym_end];
   ACTIONS 14159 [anon_sym_LBRACK]; ACTIONS 3883 [aux_sym_ppUsesBlock_token1];
   ACTIONS 3 [sym__space]; ACTIONS 5 [sym_ppDirective]; ACTIONS 3 [sym_comment];
   ACTIONS 3883 [sym_identifier]; ACTIONS 3890 [sym_kDefault; sym_kNodefault];
   ACTIONS 3893 [sym_kDispId]; ACTIONS 3883 [sym_kGeneric; sym_kOperator];
   ACTIONS 3896 [sym_kPublic]; ACTIONS 3890 [sym_kStatic; sym_kVirtual; sym_kAbstract;
   sym_kDynamic; sym_kOverride; sym_kOverload; sym_kReintroduce; sym_kStdcall; sym_kCdecl;
   sym_kCppdecl; sym_kPascal; sym_kRegister; sym_kMwpascal]; ACTIONS 13860 [sym_kExternal];
   ACTIONS 3899 [sym_kMessage]; ACTIONS 3902 [sym_kDeprecated]; ACTIONS 3890 [sym_kExperimental;
   sym_kPlatform; sym_kUnimplemented; sym_kCvar]; ACTIONS 3905 [sym_kExport];
   ACTIONS 3890 [sym_kFar; sym_kNear; sym_kSafecall; sym_kAssembler; sym_kNostackframe;
   sym_kInterrupt; sym_kNoreturn; sym_kIocheck; sym_kLocal; sym_kHardfloat; sym_kSoftfloat;
   sym_kMs_abi_default; sym_kMs_abi_cdecl; sym_kSaveregisters; sym_kSysv_abi_default;
   sym_kSysv_abi_cdecl; sym_kVectorcall; sym_kVarargs; sym_kWinapi]; ACTIONS 3908 [sym_kAlias];
   ACTIONS 3883 [sym_kBegin; sym_kClass; sym_kConst; sym_kConstructor; sym_kDestructor;
   sym_kExports; sym_kFunction]; ACTIONS 1016 [sym_kInline]; ACTIONS 3883 [sym_kLabel;
   sym_kProcedure; sym_kResourcestring; sym_kThreadvar; sym_kType; sym_kUses; sym_kVar]].

(** State 2322. *)
Definition ts_parse_table_2322 : parse_row :=
  [ACTIONS 10622 [anon_sym_LBRACK; aux_sym_ppUsesBlock_token1]; ACTIONS 3 [sym__space];
   ACTIONS 5 [sym_ppDirective]; ACTIONS 3 [sym_comment]; ACTIONS 10622 [sym_identifier;
   sym_kDefault; sym_kNodefault; sym_kDispId; sym_kGeneric; sym_kOperator; sym_kPublished;
   sym_kPublic; sym_kProtected; sym_kPrivate; sym_kStrict; sym_kRequired; sym_kOptional;
   sym_kStatic; sym_kVirtual; sym_kAbstract; sym_kDynamic; sym_kOverride; sym_kOverload;
   sym_kReintroduce; sym_kStdcall; sym_kCdecl; sym_kCppdecl; sym_kPascal; sym_kRegister;
   sym_kMwpascal; sym_kExternal; sym_kMessage; sym_kDeprecated; sym_kExperimental; sym_kPlatform;
   sym_kUnimplemented; sym_kCvar; sym_kExport; sym_kFar; sym_kNear; sym_kSafecall;
   sym_kAssembler; sym_kNostackframe; sym_kInterrupt; sym_kNoreturn; sym_kIocheck; sym_kLocal;
   sym_kHardfloat; sym_kSoftfloat; sym_kMs_abi_default; sym_kMs_abi_cdecl; sym_kSaveregisters;
   sym_kSysv_abi_default; sym_kSysv_abi_cdecl; sym_kVectorcall; sym_kVarargs; sym_kWinapi;
   sym_kAlias; sym_kCase; sym_kClass; sym_kConst; sym_kConstructor; sym_kDestructor; sym_kEnd;
   sym_kFunction; sym_kInline; sym_kProcedure; sym_kProperty; sym_kResourcestring;
   sym_kThreadvar; sym_kType; sym_kVar]].

(** State 2323. *)
Definition ts_parse_table_2323 : parse_row :=
  [STATE 2630 [sym__procAttribute]; STATE 14946 [sym_procAttribute];
   STATE 2203 [sym_procExternal; aux_sym_declVar_repeat2]; ACTIONS 14162 [anon_sym_LBRACK];
   ACTIONS 4178 [aux_sym_ppUsesBlock_token1]; ACTIONS 3 [sym__space];
   ACTIONS 5 [sym_ppDirective]; ACTIONS 3 [sym_comment]; ACTIONS 4178 [sym_identifier];
   ACTIONS 4185 [sym_kDefault; sym_kNodefault]; ACTIONS 4188 [sym_kDispId];
   ACTIONS 4178 [sym_kGeneric; sym_kOperator]; ACTIONS 4191 [sym_kPublic];
   ACTIONS 4185 [sym_kStatic; sym_kVirtual; sym_kAbstract; sym_kDynamic; sym_kOverride;
   sym_kOverload; sym_kReintroduce; sym_kStdcall; sym_kCdecl; sym_kCppdecl; sym_kPascal;
   sym_kRegister; sym_kMwpascal]; ACTIONS 13801 [sym_kExternal]; ACTIONS 4194 [sym_kMessage];
   ACTIONS 4197 [sym_kDeprecated]; ACTIONS 4185 [sym_kExperimental; sym_kPlatform;
   sym_kUnimplemented; sym_kCvar]; ACTIONS 4200 [sym_kExport]; ACTIONS 4185 [sym_kFar; sym_kNear;
   sym_kSafecall; sym_kAssembler; sym_kNostackframe; sym_kInterrupt; sym_kNoreturn; sym_kIocheck;
   sym_kLocal; sym_kHardfloat; sym_kSoftfloat; sym_kMs_abi_default; sym_kMs_abi_cdecl;
   sym_kSaveregisters; sym_kSysv_abi_default; sym_kSysv_abi_cdecl; sym_kVectorcall; sym_kVarargs;
   sym_kWinapi]; ACTIONS 4203 [sym_kAlias]; ACTIONS 4178 [sym_kAsm; sym_kBegin; sym_kClass;
   sym_kConst; sym_kConstructor; sym_kDestructor; sym_kExports; sym_kFunction];
   ACTIONS 1016 [sym_kInline]; ACTIONS 4178 [sym_kLabel; sym_kProcedure; sym_kResourcestring;
   sym_kThreadvar; sym_kType; sym_kUses; sym_kVar]].

(** State 2324. *)
Definition ts_parse_table_2324 : parse_row :=
  [STATE 2630 [sym__procAttribute]; STATE 14946 [sym_procAttribute];
   STATE 2340 [sym_procExternal; aux_sym_declVar_repeat2]; ACTIONS 14165 [anon_sym_LBRACK];
   ACTIONS 4237 [aux_sym_ppUsesBlock_token1]; ACTIONS 3 [sym__space];
   ACTIONS 5 [sym_ppDirective]; ACTIONS 3 [sym_comment]; ACTIONS 4237 [sym_identifier];
   ACTIONS 4244 [sym_kDefault; sym_kNodefault]; ACTIONS 4247 [sym_kDispId];
   ACTIONS 4237 [sym_kGeneric; sym_kOperator]; ACTIONS 4250 [sym_kPublic];
   ACTIONS 4244 [sym_kStatic; sym_kVirtual; sym_kAbstract; sym_kDynamic; sym_kOverride;
   sym_kOverload; sym_kReintroduce; sym_kStdcall; sym_kCdecl; sym_kCppdecl; sym_kPascal;
   sym_kRegister; sym_kMwpascal]; ACTIONS 13801 [sym_kExternal]; ACTIONS 4253 [sym_kMessage];
   ACTIONS 4256 [sym_kDeprecated]; ACTIONS 4244 [sym_kExperimental; sym_kPlatform;
   sym_kUnimplemented; sym_kCvar]; ACTIONS 4259 [sym_kExport]; ACTIONS 4244 [sym_kFar; sym_kNear;
   sym_kSafecall; sym_kAssembler; sym_kNostackframe; sym_kInterrupt; sym_kNoreturn; sym_kIocheck;
   sym_kLocal; sym_kHardfloat; sym_kSoftfloat; sym_kMs_abi_default; sym_kMs_abi_cdecl;
   sym_kSaveregisters; sym_kSysv_abi_default; sym_kSysv_abi_cdecl; sym_kVectorcall; sym_kVarargs;
   sym_kWinapi]; ACTIONS 4262 [sym_kAlias]; ACTIONS 4237 [sym_kAsm; sym_kBegin; sym_kClass;
   sym_kConst; sym_kConstructor; sym_kDestructor; sym_kExports; sym_kFunction];
   ACTIONS 1016 [sym_kInline]; ACTIONS 4237 [sym_kLabel; sym_kProcedure; sym_kResourcestring;
   sym_kThreadvar; sym_kType; sym_kUses; sym_kVar]].

(** State 2325. *)
Definition ts_parse_table_2325 : parse_row :=
  [STATE 2630 [sym__procAttribute]; STATE 14946 [sym_procAttribute];
   STATE 2340 [sym_procExternal; aux_sym_declVar_repeat2]; ACTIONS 14168 [anon_sym_LBRACK];
   ACTIONS 4447 [aux_sym_ppUsesBlock_token1]; ACTIONS 3 [sym__space];
   ACTIONS 5 [sym_ppDirective]; ACTIONS 3 [sym_comment]; ACTIONS 4447 [sym_identifier];
   ACTIONS 4454 [sym_kDefault; sym_kNodefault]; ACTIONS 4457 [sym_kDispId];
   ACTIONS 4447 [sym_kGeneric; sym_kOperator]; ACTIONS 4460 [sym_kPublic];
   ACTIONS 4454 [sym_kStatic; sym_kVirtual; sym_kAbstract; sym_kDynamic; sym_kOverride;
   sym_kOverload; sym_kReintroduce; sym_kStdcall; sym_kCdecl; sym_kCppdecl; sym_kPascal;
   sym_kRegister; sym_kMwpascal]; ACTIONS 13801 [sym_kExternal]; ACTIONS 4463 [sym_kMessage];
   ACTIONS 4466 [sym_kDeprecated]; ACTIONS 4454 [sym_kExperimental; sym_kPlatform;
   sym_kUnimplemented; sym_kCvar]; ACTIONS 4469 [sym_kExport]; ACTIONS 4454 [sym_kFar; sym_kNear;
   sym_kSafecall; sym_kAssembler; sym_kNostackframe; sym_kInterrupt; sym_kNoreturn; sym_kIocheck;
   sym_kLocal; sym_kHardfloat; sym_kSoftfloat; sym_kMs_abi_default; sym_kMs_abi_cdecl;
   sym_kSaveregisters; sym_kSysv_abi_default; sym_kSysv_abi_cdecl; sym_kVectorcall; sym_kVarargs;
   sym_kWinapi]; ACTIONS 4472 [sym_kAlias]; ACTIONS 4447 [sym_kAsm; sym_kBegin; sym_kClass;
   sym_kConst; sym_kConstructor; sym_kDestructor; sym_kExports; sym_kFunction];
   ACTIONS 1016 [sym_kInline]; ACTIONS 4447 [sym_kLabel; sym_kProcedure; sym_kResourcestring;
   sym_kThreadvar; sym_kType; sym_kUses; sym_kVar]].

(** State 2326. *)
Definition ts_parse_table_2326 : parse_row :=
  [STATE 2633 [sym__procAttribute]; STATE 14888 [sym_procAttribute];
   STATE 2287 [sym_procExternal; aux_sym_declVar_repeat2]; ACTIONS 3942 [ts_builtin_sym_end];
   ACTIONS 14171 [anon_sym_LBRACK]; ACTIONS 3942 [aux_sym_ppUsesBlock_token1];
   ACTIONS 3 [sym__space]; ACTIONS 5 [sym_ppDirective]; ACTIONS 3 [sym_comment];
   ACTIONS 3942 [sym_identifier]; ACTIONS 3949 [sym_kDefault; sym_kNodefault];
   ACTIONS 3952 [sym_kDispId]; ACTIONS 3942 [sym_kGeneric; sym_kOperator];
   ACTIONS 3955 [sym_kPublic]; ACTIONS 3949 [sym_kStatic; sym_kVirtual; sym_kAbstract;
   sym_kDynamic; sym_kOverride; sym_kOverload; sym_kReintroduce; sym_kStdcall; sym_kCdecl;
   sym_kCppdecl; sym_kPascal; sym_kRegister; sym_kMwpascal]; ACTIONS 13860 [sym_kExternal];
   ACTIONS 3958 [sym_kMessage]; ACTIONS 3961 [sym_kDeprecated]; ACTIONS 3949 [sym_kExperimental;
   sym_kPlatform; sym_kUnimplemented; sym_kCvar]; ACTIONS 3964 [sym_kExport];
   ACTIONS 3949 [sym_kFar; sym_kNear; sym_kSafecall; sym_kAssembler; sym_kNostackframe;
   sym_kInterrupt; sym_kNoreturn; sym_kIocheck; sym_kLocal; sym_kHardfloat; sym_kSoftfloat;
   sym_kMs_abi_default; sym_kMs_abi_cdecl; sym_kSaveregisters; sym_kSysv_abi_default;
   sym_kSysv_abi_cdecl; sym_kVectorcall; sym_kVarargs; sym_kWinapi]; ACTIONS 3967 [sym_kAlias];
   ACTIONS 3942 [sym_kBegin; sym_kClass; sym_kConst; sym_kConstructor; sym_kDestructor;
   sym_kExports; sym_kFunction]; ACTIONS 1016 [sym_kInline]; ACTIONS 3942 [sym_kLabel;
   sym_kProcedure; sym_kResourcestring; sym_kThreadvar; sym_kType; sym_kUses; sym_kVar]].

(** State 2327. *)
Definition ts_parse_table_2327 : parse_row :=
  [STATE 2633 [sym__procAttribute]; STATE 14888 [sym_procAttribute];
   STATE 2255 [sym_procExternal; aux_sym_declVar_repeat2]; ACTIONS 3970 [ts_builtin_sym_end];
   ACTIONS 14174 [anon_sym_LBRACK]; ACTIONS 3970 [aux_sym_ppUsesBlock_token1];
   ACTIONS 3 [sym__space]; ACTIONS 5 [sym_ppDirective]; ACTIONS 3 [sym_comment];
   ACTIONS 3970 [sym_identifier]; ACTIONS 3977 [sym_kDefault; sym_kNodefault];
   ACTIONS 3980 [sym_kDispId]; ACTIONS 3970 [sym_kGeneric; sym_kOperator];
   ACTIONS 3983 [sym_kPublic]; ACTIONS 3977 [sym_kStatic; sym_kVirtual; sym_kAbstract;
   sym_kDynamic; sym_kOverride; sym_kOverload; sym_kReintroduce; sym_kStdcall; sym_kCdecl;
   sym_kCppdecl; sym_kPascal; sym_kRegister; sym_kMwpascal]; ACTIONS 13860 [sym_kExternal];
   ACTIONS 3986 [sym_kMessage]; ACTIONS 3989 [sym_kDeprecated]; ACTIONS 3977 [sym_kExperimental;
   sym_kPlatform; sym_kUnimplemented; sym_kCvar]; ACTIONS 3992 [sym_kExport];
   ACTIONS 3977 [sym_kFar; sym_kNear; sym_kSafecall; sym_kAssembler; sym_kNostackframe;
   sym_kInterrupt; sym_kNoreturn; sym_kIocheck; sym_kLocal; sym_kHardfloat; sym_kSoftfloat;
   sym_kMs_abi_default; sym_kMs_abi_cdecl; sym_kSaveregisters; sym_kSysv_abi_default;
   sym_kSysv_abi_cdecl; sym_kVectorcall; sym_kVarargs; sym_kWinapi]; ACTIONS 3995 [sym_kAlias];
   ACTIONS 3970 [sym_kBegin; sym_kClass; sym_kConst; sym_kConstructor; sym_kDestructor;
   sym_kExports; sym_kFunction]; ACTIONS 1016 [sym_kInline]; ACTIONS 3970 [sym_kLabel;
   sym_kProcedure; sym_kResourcestring; sym_kThreadvar; sym_kType; sym_kUses; sym_kVar]].

(** State 2328. *)
Definition ts_parse_table_2328 : parse_row :=
  [STATE 2633 [sym__procAttribute]; STATE 14888 [sym_procAttribute];
   STATE 2287 [sym_procExternal; aux_sym_declVar_repeat2]; ACTIONS 4057 [ts_builtin_sym_end];
   ACTIONS 14177 [anon_sym_LBRACK]; ACTIONS 4057 [aux_sym_ppUsesBlock_token1];
   ACTIONS 3 [sym__space]; ACTIONS 5 [sym_ppDirective]; ACTIONS 3 [sym_comment];
   ACTIONS 4057 [sym_identifier]; ACTIONS 4064 [sym_kDefault; sym_kNodefault];
   ACTIONS 4067 [sym_kDispId]; ACTIONS 4057 [sym_kGeneric; sym_kOperator];
   ACTIONS 4070 [sym_kPublic]; ACTIONS 4064 [sym_kStatic; sym_kVirtual; sym_kAbstract;
   sym_kDynamic; sym_kOverride; sym_kOverload; sym_kReintroduce; sym_kStdcall; sym_kCdecl;
   sym_kCppdecl; sym_kPascal; sym_kRegister; sym_kMwpascal]; ACTIONS 13860 [sym_kExternal];
   ACTIONS 4073 [sym_kMessage]; ACTIONS 4076 [sym_kDeprecated]; ACTIONS 4064 [sym_kExperimental;
   sym_kPlatform; sym_kUnimplemented; sym_kCvar]; ACTIONS 4079 [sym_kExport];
   ACTIONS 4064 [sym_kFar; sym_kNear; sym_kSafecall; sym_kAssembler; sym_kNostackframe;
   sym_kInterrupt; sym_kNoreturn; sym_kIocheck; sym_kLocal; sym_kHardfloat; sym_kSoftfloat;
   sym_kMs_abi_default; sym_kMs_abi_cdecl; sym_kSaveregisters; sym_kSysv_abi_default;
   sym_kSysv_abi_cdecl; sym_kVectorcall; sym_kVarargs; sym_kWinapi]; ACTIONS 4082 [sym_kAlias];
   ACTIONS 4057 [sym_kBegin; sym_kClass; sym_kConst; sym_kConstructor; sym_kDestructor;
   sym_kExports; sym_kFunction]; ACTIONS 1016 [sym_kInline]; ACTIONS 4057 [sym_kLabel;
   sym_kProcedure; sym_kResourcestring; sym_kThreadvar; sym_kType; sym_kUses; sym_kVar]].

(** State 2329. *)
Definition ts_parse_table_2329 : parse_row :=
  [STATE 2630 [sym__procAttribute]; STATE 14946 [sym_procAttribute];
   STATE 2205 [sym_procExternal; aux_sym_declVar_repeat2]; ACTIONS 14180 [anon_sym_LBRACK];
   ACTIONS 4879 [aux_sym_ppUsesBlock_token1]; ACTIONS 3 [sym__space];
   ACTIONS 5 [sym_ppDirective]; ACTIONS 3 [sym_comment]; ACTIONS 4879 [sym_identifier];
   ACTIONS 4886 [sym_kDefault; sym_kNodefault]; ACTIONS 4889 [sym_kDispId];
   ACTIONS 4879 [sym_kGeneric; sym_kOperator]; ACTIONS 4892 [sym_kPublic];
   ACTIONS 4886 [sym_kStatic; sym_kVirtual; sym_kAbstract; sym_kDynamic; sym_kOverride;
   sym_kOverload; sym_kReintroduce; sym_kStdcall; sym_kCdecl; sym_kCppdecl; sym_kPascal;
   sym_kRegister; sym_kMwpascal]; ACTIONS 13801 [sym_kExternal]; ACTIONS 4895 [sym_kMessage];
   ACTIONS 4898 [sym_kDeprecated]; ACTIONS 4886 [sym_kExperimental; sym_kPlatform;
   sym_kUnimplemented; sym_kCvar]; ACTIONS 4901 [sym_kExport]; ACTIONS 4886 [sym_kFar; sym_kNear;
   sym_kSafecall; sym_kAssembler; sym_kNostackframe; sym_kInterrupt; sym_kNoreturn; sym_kIocheck;
   sym_kLocal; sym_kHardfloat; sym_kSoftfloat; sym_kMs_abi_default; sym_kMs_abi_cdecl;
   sym_kSaveregisters; sym_kSysv_abi_default; sym_kSysv_abi_cdecl; sym_kVectorcall; sym_kVarargs;
   sym_kWinapi]; ACTIONS 4904 [sym_kAlias]; ACTIONS 4879 [sym_kAsm; sym_kBegin; sym_kClass;
   sym_kConst; sym_kConstructor; sym_kDestructor; sym_kExports; sym_kFunction];
   ACTIONS 1016 [sym_kInline]; ACTIONS 4879 [sym_kLabel; sym_kProcedure; sym_kResourcestring;
   sym_kThreadvar; sym_kType; sym_kUses; sym_kVar]].

(** State 2330. *)
Definition ts_parse_table_2330 : parse_row :=
  [STATE 2630 [sym__procAttribute]; STATE 14946 [sym_procAttribute];
   STATE 2340 [sym_procExternal; aux_sym_declVar_repeat2]; ACTIONS 14183 [anon_sym_LBRACK];
   ACTIONS 4969 [aux_sym_ppUsesBlock_token1]; ACTIONS 3 [sym__space];
   ACTIONS 5 [sym_ppDirective]; ACTIONS 3 [sym_comment]; ACTIONS 4969 [sym_identifier];
   ACTIONS 4976 [sym_kDefault; sym_kNodefault]; ACTIONS 4979 [sym_kDispId];
   ACTIONS 4969 [sym_kGeneric; sym_kOperator]; ACTIONS 4982 [sym_kPublic];
   ACTIONS 4976 [sym_kStatic; sym_kVirtual; sym_kAbstract; sym_kDynamic; sym_kOverride;
   sym_kOverload; sym_kReintroduce; sym_kStdcall; sym_kCdecl; sym_kCppdecl; sym_kPascal;
   sym_kRegister; sym_kMwpascal]; ACTIONS 13801 [sym_kExternal]; ACTIONS 4985 [sym_kMessage];
   ACTIONS 4988 [sym_kDeprecated]; ACTIONS 4976 [sym_kExperimental; sym_kPlatform;
   sym_kUnimplemented; sym_kCvar]; ACTIONS 4991 [sym_kExport]; ACTIONS 4976 [sym_kFar; sym_kNear;
   sym_kSafecall; sym_kAssembler; sym_kNostackframe; sym_kInterrupt; sym_kNoreturn; sym_kIocheck;
   sym_kLocal; sym_kHardfloat; sym_kSoftfloat; sym_kMs_abi_default; sym_kMs_abi_cdecl;
   sym_kSaveregisters; sym_kSysv_abi_default; sym_kSysv_abi_cdecl; sym_kVectorcall; sym_kVarargs;
   sym_kWinapi]; ACTIONS 4994 [sym_kAlias]; ACTIONS 4969 [sym_kAsm; sym_kBegin; sym_kClass;
   sym_kConst; sym_kConstructor; sym_kDestructor; sym_kExports; sym_kFunction];
   ACTIONS 1016 [sym_kInline]; ACTIONS 4969 [sym_kLabel; sym_kProcedure; sym_kResourcestring;
   sym_kThreadvar; sym_kType; sym_kUses; sym_kVar]].

(** State 2331. *)
Definition ts_parse_table_2331 : parse_row :=
  [ACTIONS 10630 [anon_sym_LBRACK; aux_sym_ppUsesBlock_token1]; ACTIONS 3 [sym__space];
   ACTIONS 5 [sym_ppDirective]; ACTIONS 3 [sym_comment]; ACTIONS 10630 [sym_identifier;
   sym_kDefault; sym_kNodefault; sym_kDispId; sym_kGeneric; sym_kOperator; sym_kPublished;
   sym_kPublic; sym_kProtected; sym_kPrivate; sym_kStrict; sym_kRequired; sym_kOptional;
   sym_kStatic; sym_kVirtual; sym_kAbstract; sym_kDynamic; sym_kOverride; sym_kOverload;
   sym_kReintroduce; sym_kStdcall; sym_kCdecl; sym_kCppdecl; sym_kPascal; sym_kRegister;
   sym_kMwpascal; sym_kExternal; sym_kMessage; sym_kDeprecated; sym_kExperimental; sym_kPlatform;
   sym_kUnimplemented; sym_kCvar; sym_kExport; sym_kFar; sym_kNear; sym_kSafecall;
   sym_kAssembler; sym_kNostackframe; sym_kInterrupt; sym_kNoreturn; sym_kIocheck; sym_kLocal;
   sym_kHardfloat; sym_kSoftfloat; sym_kMs_abi_default; sym_kMs_abi_cdecl; sym_kSaveregisters;
   sym_kSysv_abi_default; sym_kSysv_abi_cdecl; sym_kVectorcall; sym_kVarargs; sym_kWinapi;
   sym_kAlias; sym_kCase; sym_kClass; sym_kConst; sym_kConstructor; sym_kDestructor; sym_kEnd;
   sym_kFunction; sym_kInline; sym_kProcedure; sym_kProperty; sym_kResourcestring;
   sym_kThreadvar; sym_kType; sym_kVar]].

(** State 2332. *)
Definition ts_parse_table_2332 : parse_row :=
  [STATE 2633 [sym__procAttribute]; STATE 14888 [sym_procAttribute];
   STATE 2256 [sym_procExternal; aux_sym_declVar_repeat2]; ACTIONS 4178 [ts_builtin_sym_end];
   ACTIONS 14186 [anon_sym_LBRACK]; ACTIONS 4178 [aux_sym_ppUsesBlock_token1];
   ACTIONS 3 [sym__space]; ACTIONS 5 [sym_ppDirective]; ACTIONS 3 [sym_comment];
   ACTIONS 4178 [sym_identifier]; ACTIONS 4185 [sym_kDefault; sym_kNodefault];
   ACTIONS 4188 [sym_kDispId]; ACTIONS 4178 [sym_kGeneric; sym_kOperator];
   ACTIONS 4191 [sym_kPublic]; ACTIONS 4185 [sym_kStatic; sym_kVirtual; sym_kAbstract;
   sym_kDynamic; sym_kOverride; sym_kOverload; sym_kReintroduce; sym_kStdcall; sym_kCdecl;
   sym_kCppdecl; sym_kPascal; sym_kRegister; sym_kMwpascal]; ACTIONS 13860 [sym_kExternal];
   ACTIONS 4194 [sym_kMessage]; ACTIONS 4197 [sym_kDeprecated]; ACTIONS 4185 [sym_kExperimental;
   sym_kPlatform; sym_kUnimplemented; sym_kCvar]; ACTIONS 4200 [sym_kExport];
   ACTIONS 4185 [sym_kFar; sym_kNear; sym_kSafecall; sym_kAssembler; sym_kNostackframe;
   sym_kInterrupt; sym_kNoreturn; sym_kIocheck; sym_kLocal; sym_kHardfloat; sym_kSoftfloat;
   sym_kMs_abi_default; sym_kMs_abi_cdecl; sym_kSaveregisters; sym_kSysv_abi_default;
   sym_kSysv_abi_cdecl; sym_kVectorcall; sym_kVarargs; sym_kWinapi]; ACTIONS 4203 [sym_kAlias];
   ACTIONS 4178 [sym_kBegin; sym_kClass; sym_kConst; sym_kConstructor; sym_kDestructor;
   sym_kExports; sym_kFunction]; ACTIONS 1016 [sym_kInline]; ACTIONS 4178 [sym_kLabel;
   sym_kProcedure; sym_kResourcestring; sym_kThreadvar; sym_kType; sym_kUses; sym_kVar]].

(** State 2333. *)
Definition ts_parse_table_2333 : parse_row :=
  [STATE 2633 [sym__procAttribute]; STATE 14888 [sym_procAttribute];
   STATE 2287 [sym_procExternal; aux_sym_declVar_repeat2]; ACTIONS 4237 [ts_builtin_sym_end];
   ACTIONS 14189 [anon_sym_LBRACK]; ACTIONS 4237 [aux_sym_ppUsesBlock_token1];
   ACTIONS 3 [sym__space]; ACTIONS 5 [sym_ppDirective]; ACTIONS 3 [sym_comment];
   ACTIONS 4237 [sym_identifier]; ACTIONS 4244 [sym_kDefault; sym_kNodefault];
   ACTIONS 4247 [sym_kDispId]; ACTIONS 4237 [sym_kGeneric; sym_kOperator];
   ACTIONS 4250 [sym_kPublic]; ACTIONS 4244 [sym_kStatic; sym_kVirtual; sym_kAbstract;
   sym_kDynamic; sym_kOverride; sym_kOverload; sym_kReintroduce; sym_kStdcall; sym_kCdecl;
   sym_kCppdecl; sym_kPascal; sym_kRegister; sym_kMwpascal]; ACTIONS 13860 [sym_kExternal];
   ACTIONS 4253 [sym_kMessage]; ACTIONS 4256 [sym_kDeprecated]; ACTIONS 4244 [sym_kExperimental;
   sym_kPlatform; sym_kUnimplemented; sym_kCvar]; ACTIONS 4259 [sym_kExport];
   ACTIONS 4244 [sym_kFar; sym_kNear; sym_kSafecall; sym_kAssembler; sym_kNostackframe;
   sym_kInterrupt; sym_kNoreturn; sym_kIocheck; sym_kLocal; sym_kHardfloat; sym_kSoftfloat;
   sym_kMs_abi_default; sym_kMs_abi_cdecl; sym_kSaveregisters; sym_kSysv_abi_default;
   sym_kSysv_abi_cdecl; sym_kVectorcall; sym_kVarargs; sym_kWinapi]; ACTIONS 4262 [sym_kAlias];
   ACTIONS 4237 [sym_kBegin; sym_kClass; sym_kConst; sym_kConstructor; sym_kDestructor;
   sym_kExports; sym_kFunction]; ACTIONS 1016 [sym_kInline]; ACTIONS 4237 [sym_kLabel;
   sym_kProcedure; sym_kResourcestring; sym_kThreadvar; sym_kType; sym_kUses; sym_kVar]].

(** State 2334. *)
Definition ts_parse_table_2334 : parse_row :=
  [STATE 2633 [sym__procAttribute]; STATE 14888 [sym_procAttribute];
   STATE 2287 [sym_procExternal; aux_sym_declVar_repeat2]; ACTIONS 4447 [ts_builtin_sym_end];
   ACTIONS 14192 [anon_sym_LBRACK]; ACTIONS 4447 [aux_sym_ppUsesBlock_token1];
   ACTIONS 3 [sym__space]; ACTIONS 5 [sym_ppDirective]; ACTIONS 3 [sym_comment];
   ACTIONS 4447 [sym_identifier]; ACTIONS 4454 [sym_kDefault; sym_kNodefault];
   ACTIONS 4457 [sym_kDispId]; ACTIONS 4447 [sym_kGeneric; sym_kOperator];
   ACTIONS 4460 [sym_kPublic]; ACTIONS 4454 [sym_kStatic; sym_kVirtual; sym_kAbstract;
   sym_kDynamic; sym_kOverride; sym_kOverload; sym_kReintroduce; sym_kStdcall; sym_kCdecl;
   sym_kCppdecl; sym_kPascal; sym_kRegister; sym_kMwpascal]; ACTIONS 13860 [sym_kExternal];
   ACTIONS 4463 [sym_kMessage]; ACTIONS 4466 [sym_kDeprecated]; ACTIONS 4454 [sym_kExperimental;
   sym_kPlatform; sym_kUnimplemented; sym_kCvar]; ACTIONS 4469 [sym_kExport];
   ACTIONS 4454 [sym_kFar; sym_kNear; sym_kSafecall; sym_kAssembler; sym_kNostackframe;
   sym_kInterrupt; sym_kNoreturn; sym_kIocheck; sym_kLocal; sym_kHardfloat; sym_kSoftfloat;
   sym_kMs_abi_default; sym_kMs_abi_cdecl; sym_kSaveregisters; sym_kSysv_abi_default;
   sym_kSysv_abi_cdecl; sym_kVectorcall; sym_kVarargs; sym_kWinapi]; ACTIONS 4472 [sym_kAlias];
   ACTIONS 4447 [sym_kBegin; sym_kClass; sym_kConst; sym_kConstructor; sym_kDestructor;
   sym_kExports; sym_kFunction]; ACTIONS 1016 [sym_kInline]; ACTIONS 4447 [sym_kLabel;
   sym_kProcedure; sym_kResourcestring; sym_kThreadvar; sym_kType; sym_kUses; sym_kVar]].

(** State 2335. *)
Definition ts_parse_table_2335 : parse_row :=
  [STATE 2630 [sym__procAttribute]; STATE 14946 [sym_procAttribute];
   STATE 2207 [sym_procExternal; aux_sym_declVar_repeat2]; ACTIONS 14195 [anon_sym_LBRACK];
   ACTIONS 5221 [aux_sym_ppUsesBlock_token1]; ACTIONS 3 [sym__space];
   ACTIONS 5 [sym_ppDirective]; ACTIONS 3 [sym_comment]; ACTIONS 5221 [sym_identifier];
   ACTIONS 5228 [sym_kDefault; sym_kNodefault]; ACTIONS 5231 [sym_kDispId];
   ACTIONS 5221 [sym_kGeneric; sym_kOperator]; ACTIONS 5234 [sym_kPublic];
   ACTIONS 5228 [sym_kStatic; sym_kVirtual; sym_kAbstract; sym_kDynamic; sym_kOverride;
   sym_kOverload; sym_kReintroduce; sym_kStdcall; sym_kCdecl; sym_kCppdecl; sym_kPascal;
   sym_kRegister; sym_kMwpascal]; ACTIONS 13801 [sym_kExternal]; ACTIONS 5237 [sym_kMessage];
   ACTIONS 5240 [sym_kDeprecated]; ACTIONS 5228 [sym_kExperimental; sym_kPlatform;
   sym_kUnimplemented; sym_kCvar]; ACTIONS 5243 [sym_kExport]; ACTIONS 5228 [sym_kFar; sym_kNear;
   sym_kSafecall; sym_kAssembler; sym_kNostackframe; sym_kInterrupt; sym_kNoreturn; sym_kIocheck;
   sym_kLocal; sym_kHardfloat; sym_kSoftfloat; sym_kMs_abi_default; sym_kMs_abi_cdecl;
   sym_kSaveregisters; sym_kSysv_abi_default; sym_kSysv_abi_cdecl; sym_kVectorcall; sym_kVarargs;
   sym_kWinapi]; ACTIONS 5246 [sym_kAlias]; ACTIONS 5221 [sym_kAsm; sym_kBegin; sym_kClass;
   sym_kConst; sym_kConstructor; sym_kDestructor; sym_kExports; sym_kFunction];
   ACTIONS 1016 [sym_kInline]; ACTIONS 5221 [sym_kLabel; sym_kProcedure; sym_kResourcestring;
   sym_kThreadvar; sym_kType; sym_kUses; sym_kVar]].

(** State 2336. *)
Definition ts_parse_table_2336 : parse_row :=
  [STATE 2656 [sym__procAttribute]; STATE 14883 [sym_procAttribute];
   STATE 2173 [sym_procExternal; aux_sym_declVar_repeat2]; ACTIONS 14198 [anon_sym_LBRACK];
   ACTIONS 6525 [aux_sym_ppUsesBlock_token1]; ACTIONS 3 [sym__space];
   ACTIONS 5 [sym_ppDirective]; ACTIONS 3 [sym_comment]; ACTIONS 6525 [sym_identifier];
   ACTIONS 6532 [sym_kDefault; sym_kNodefault]; ACTIONS 6535 [sym_kDispId];
   ACTIONS 6525 [sym_kGeneric; sym_kOperator]; ACTIONS 6538 [sym_kPublic];
   ACTIONS 6532 [sym_kStatic; sym_kVirtual; sym_kAbstract; sym_kDynamic; sym_kOverride;
   sym_kOverload; sym_kReintroduce; sym_kStdcall; sym_kCdecl; sym_kCppdecl; sym_kPascal;
   sym_kRegister; sym_kMwpascal]; ACTIONS 13763 [sym_kExternal]; ACTIONS 6541 [sym_kMessage];
   ACTIONS 6544 [sym_kDeprecated]; ACTIONS 6532 [sym_kExperimental; sym_kPlatform;
   sym_kUnimplemented; sym_kCvar]; ACTIONS 6547 [sym_kExport]; ACTIONS 6532 [sym_kFar; sym_kNear;
   sym_kSafecall; sym_kAssembler; sym_kNostackframe; sym_kInterrupt; sym_kNoreturn; sym_kIocheck;
   sym_kLocal; sym_kHardfloat; sym_kSoftfloat; sym_kMs_abi_default; sym_kMs_abi_cdecl;
   sym_kSaveregisters; sym_kSysv_abi_default; sym_kSysv_abi_cdecl; sym_kVectorcall; sym_kVarargs;
   sym_kWinapi]; ACTIONS 6550 [sym_kAlias]; ACTIONS 6525 [sym_kBegin; sym_kClass; sym_kConst;
   sym_kConstructor; sym_kDestructor; sym_kEnd; sym_kExports; sym_kFunction];
   ACTIONS 1016 [sym_kInline]; ACTIONS 6525 [sym_kLabel; sym_kProcedure; sym_kResourcestring;
   sym_kThreadvar; sym_kType; sym_kUses; sym_kVar]].

(** State 2337. *)
Definition ts_parse_table_2337 : parse_row :=
  [ACTIONS 10634 [anon_sym_LBRACK; aux_sym_ppUsesBlock_token1]; ACTIONS 3 [sym__space];
   ACTIONS 5 [sym_ppDirective]; ACTIONS 3 [sym_comment]; ACTIONS 10634 [sym_identifier;
   sym_kDefault; sym_kNodefault; sym_kDispId; sym_kGeneric; sym_kOperator; sym_kPublished;
   sym_kPublic; sym_kProtected; sym_kPrivate; sym_kStrict; sym_kRequired; sym_kOptional;
   sym_kStatic; sym_kVirtual; sym_kAbstract; sym_kDynamic; sym_kOverride; sym_kOverload;
   sym_kReintroduce; sym_kStdcall; sym_kCdecl; sym_kCppdecl; sym_kPascal; sym_kRegister;
   sym_kMwpascal; sym_kExternal; sym_kMessage; sym_kDeprecated; sym_kExperimental; sym_kPlatform;
   sym_kUnimplemented; sym_kCvar; sym_kExport; sym_kFar; sym_kNear; sym_kSafecall;
   sym_kAssembler; sym_kNostackframe; sym_kInterrupt; sym_kNoreturn; sym_kIocheck; sym_kLocal;
   sym_kHardfloat; sym_kSoftfloat; sym_kMs_abi_default; sym_kMs_abi_cdecl; sym_kSaveregisters;
   sym_kSysv_abi_default; sym_kSysv_abi_cdecl; sym_kVectorcall; sym_kVarargs; sym_kWinapi;
   sym_kAlias; sym_kCase; sym_kClass; sym_kConst; sym_kConstructor; sym_kDestructor; sym_kEnd;
   sym_kFunction; sym_kInline; sym_kProcedure; sym_kProperty; sym_kResourcestring;
   sym_kThreadvar; sym_kType; sym_kVar]].

(** State 2338. *)
Definition ts_parse_table_2338 : parse_row :=
  [STATE 2656 [sym__procAttribute]; STATE 14883 [sym_procAttribute];
   STATE 2338 [sym_procExternal; aux_sym_declVar_repeat2]; ACTIONS 14201 [anon_sym_LBRACK];
   ACTIONS 6584 [aux_sym_ppUsesBlock_token1]; ACTIONS 3 [sym__space];
   ACTIONS 5 [sym_ppDirective]; ACTIONS 3 [sym_comment]; ACTIONS 6584 [sym_identifier];
   ACTIONS 6591 [sym_kDefault; sym_kNodefault]; ACTIONS 6594 [sym_kDispId];
   ACTIONS 6584 [sym_kGeneric; sym_kOperator]; ACTIONS 6597 [sym_kPublic];
   ACTIONS 6591 [sym_kStatic; sym_kVirtual; sym_kAbstract; sym_kDynamic; sym_kOverride;
   sym_kOverload; sym_kReintroduce; sym_kStdcall; sym_kCdecl; sym_kCppdecl; sym_kPascal;
   sym_kRegister; sym_kMwpascal]; ACTIONS 14204 [sym_kExternal]; ACTIONS 6603 [sym_kMessage];
   ACTIONS 6606 [sym_kDeprecated]; ACTIONS 6591 [sym_kExperimental; sym_kPlatform;
   sym_kUnimplemented; sym_kCvar]; ACTIONS 6609 [sym_kExport]; ACTIONS 6591 [sym_kFar; sym_kNear;
   sym_kSafecall; sym_kAssembler; sym_kNostackframe; sym_kInterrupt; sym_kNoreturn; sym_kIocheck;
   sym_kLocal; sym_kHardfloat; sym_kSoftfloat; sym_kMs_abi_default; sym_kMs_abi_cdecl;
   sym_kSaveregisters; sym_kSysv_abi_default; sym_kSysv_abi_cdecl; sym_kVectorcall; sym_kVarargs;
   sym_kWinapi]; ACTIONS 6612 [sym_kAlias]; ACTIONS 6584 [sym_kBegin; sym_kClass; sym_kConst;
   sym_kConstructor; sym_kDestructor; sym_kEnd; sym_kExports; sym_kFunction];
   ACTIONS 6591 [sym_kInline]; ACTIONS 6584 [sym_kLabel; sym_kProcedure; sym_kResourcestring;
   sym_kThreadvar; sym_kType; sym_kUses; sym_kVar]].

(** State 2339. *)
Definition ts_parse_table_2339 : parse_row :=
  [STATE 2656 [sym__procAttribute]; STATE 14883 [sym_procAttribute];
   STATE 2338 [sym_procExternal; aux_sym_declVar_repeat2]; ACTIONS 14207 [anon_sym_LBRACK];
   ACTIONS 6618 [aux_sym_ppUsesBlock_token1]; ACTIONS 3 [sym__space];
   ACTIONS 5 [sym_ppDirective]; ACTIONS 3 [sym_comment]; ACTIONS 6618 [sym_identifier];
   ACTIONS 6625 [sym_kDefault; sym_kNodefault]; ACTIONS 6628 [sym_kDispId];
   ACTIONS 6618 [sym_kGeneric; sym_kOperator]; ACTIONS 6631 [sym_kPublic];
   ACTIONS 6625 [sym_kStatic; sym_kVirtual; sym_kAbstract; sym_kDynamic; sym_kOverride;
   sym_kOverload; sym_kReintroduce; sym_kStdcall; sym_kCdecl; sym_kCppdecl; sym_kPascal;
   sym_kRegister; sym_kMwpascal]; ACTIONS 13763 [sym_kExternal]; ACTIONS 6634 [sym_kMessage];
   ACTIONS 6637 [sym_kDeprecated]; ACTIONS 6625 [sym_kExperimental; sym_kPlatform;
   sym_kUnimplemented; sym_kCvar]; ACTIONS 6640 [sym_kExport]; ACTIONS 6625 [sym_kFar; sym_kNear;
   sym_kSafecall; sym_kAssembler; sym_kNostackframe; sym_kInterrupt; sym_kNoreturn; sym_kIocheck;
   sym_kLocal; sym_kHardfloat; sym_kSoftfloat; sym_kMs_abi_default; sym_kMs_abi_cdecl;
   sym_kSaveregisters; sym_kSysv_abi_default; sym_kSysv_abi_cdecl; sym_kVectorcall; sym_kVarargs;
   sym_kWinapi]; ACTIONS 6643 [sym_kAlias]; ACTIONS 6618 [sym_kBegin; sym_kClass; sym_kConst;
   sym_kConstructor; sym_kDestructor; sym_kEnd; sym_kExports; sym_kFunction];
   ACTIONS 1016 [sym_kInline]; ACTIONS 6618 [sym_kLabel; sym_kProcedure; sym_kResourcestring;
   sym_kThreadvar; sym_kType; sym_kUses; sym_kVar]].

(** State 2340. *)
Definition ts_parse_table_2340 : parse_row :=
  [STATE 2630 [sym__procAttribute]; STATE 14946 [sym_procAttribute];
   STATE 2340 [sym_procExternal; aux_sym_declVar_repeat2]; ACTIONS 14210 [anon_sym_LBRACK];
   ACTIONS 6584 [aux_sym_ppUsesBlock_token1]; ACTIONS 3 [sym__space];
   ACTIONS 5 [sym_ppDirective]; ACTIONS 3 [sym_comment]; ACTIONS 6584 [sym_identifier];
   ACTIONS 6591 [sym_kDefault; sym_kNodefault]; ACTIONS 6594 [sym_kDispId];
   ACTIONS 6584 [sym_kGeneric; sym_kOperator]; ACTIONS 6597 [sym_kPublic];
   ACTIONS 6591 [sym_kStatic; sym_kVirtual; sym_kAbstract; sym_kDynamic; sym_kOverride;
   sym_kOverload; sym_kReintroduce; sym_kStdcall; sym_kCdecl; sym_kCppdecl; sym_kPascal;
   sym_kRegister; sym_kMwpascal]; ACTIONS 14213 [sym_kExternal]; ACTIONS 6603 [sym_kMessage];
   ACTIONS 6606 [sym_kDeprecated]; ACTIONS 6591 [sym_kExperimental; sym_kPlatform;
   sym_kUnimplemented; sym_kCvar]; ACTIONS 6609 [sym_kExport]; ACTIONS 6591 [sym_kFar; sym_kNear;
   sym_kSafecall; sym_kAssembler; sym_kNostackframe; sym_kInterrupt; sym_kNoreturn; sym_kIocheck;
   sym_kLocal; sym_kHardfloat; sym_kSoftfloat; sym_kMs_abi_default; sym_kMs_abi_cdecl;
   sym_kSaveregisters; sym_kSysv_abi_default; sym_kSysv_abi_cdecl; sym_kVectorcall; sym_kVarargs;
   sym_kWinapi]; ACTIONS 6612 [sym_kAlias]; ACTIONS 6584 [sym_kAsm; sym_kBegin; sym_kClass;
   sym_kConst; sym_kConstructor; sym_kDestructor; sym_kExports; sym_kFunction];
   ACTIONS 6591 [sym_kInline]; ACTIONS 6584 [sym_kLabel; sym_kProcedure; sym_kResourcestring;
   sym_kThreadvar; sym_kType; sym_kUses; sym_kVar]].

(** State 2341. *)
Definition ts_parse_table_2341 : parse_row :=
  [STATE 2887 [sym__ppIf]; STATE 2734 [sym__procAttributeNoExt];
   STATE 2735 [sym__procAttributesPp]; STATE 15193 [sym_procAttribute];
   STATE 2417 [aux_sym__declProc_repeat1]; ACTIONS 14216 [anon_sym_LBRACK];
   ACTIONS 5408 [aux_sym_ppUsesBlock_token1]; ACTIONS 3 [sym__space];
   ACTIONS 5 [sym_ppDirective]; ACTIONS 3 [sym_comment]; ACTIONS 1016 [sym_kDefault;
   sym_kNodefault]; ACTIONS 11641 [sym_kDispId]; ACTIONS 5401 [sym_kGeneric; sym_kOperator];
   ACTIONS 11643 [sym_kPublic]; ACTIONS 1016 [sym_kStatic; sym_kVirtual; sym_kAbstract;
   sym_kDynamic; sym_kOverride; sym_kOverload; sym_kReintroduce; sym_kStdcall; sym_kCdecl;
   sym_kCppdecl; sym_kPascal; sym_kRegister; sym_kMwpascal]; ACTIONS 11645 [sym_kMessage];
   ACTIONS 11647 [sym_kDeprecated]; ACTIONS 1016 [sym_kExperimental; sym_kPlatform;
   sym_kUnimplemented; sym_kCvar]; ACTIONS 11649 [sym_kExport]; ACTIONS 1016 [sym_kFar;
   sym_kNear; sym_kSafecall; sym_kAssembler; sym_kNostackframe; sym_kInterrupt; sym_kNoreturn;
   sym_kIocheck; sym_kLocal; sym_kHardfloat; sym_kSoftfloat; sym_kMs_abi_default;
   sym_kMs_abi_cdecl; sym_kSaveregisters; sym_kSysv_abi_default; sym_kSysv_abi_cdecl;
   sym_kVectorcall; sym_kVarargs; sym_kWinapi]; ACTIONS 11651 [sym_kAlias];
   ACTIONS 5401 [sym_kAsm; sym_kBegin; sym_kClass; sym_kConst; sym_kConstructor; sym_kDestructor;
   sym_kExports; sym_kFunction]; ACTIONS 1016 [sym_kInline]; ACTIONS 5401 [sym_kLabel;
   sym_kProcedure; sym_kResourcestring; sym_kThreadvar; sym_kType; sym_kUses; sym_kVar]].

(** State 2342. *)
Definition ts_parse_table_2342 : parse_row :=
  [STATE 2887 [sym__ppIf]; STATE 2734 [sym__procAttributeNoExt];
   STATE 2735 [sym__procAttributesPp]; STATE 15193 [sym_procAttribute];
   STATE 2417 [aux_sym__declProc_repeat1]; ACTIONS 14219 [anon_sym_LBRACK];
   ACTIONS 1765 [aux_sym_ppUsesBlock_token1]; ACTIONS 3 [sym__space];
   ACTIONS 5 [sym_ppDirective]; ACTIONS 3 [sym_comment]; ACTIONS 1016 [sym_kDefault;
   sym_kNodefault]; ACTIONS 11641 [sym_kDispId]; ACTIONS 1758 [sym_kGeneric; sym_kOperator];
   ACTIONS 11643 [sym_kPublic]; ACTIONS 1016 [sym_kStatic; sym_kVirtual; sym_kAbstract;
   sym_kDynamic; sym_kOverride; sym_kOverload; sym_kReintroduce; sym_kStdcall; sym_kCdecl;
   sym_kCppdecl; sym_kPascal; sym_kRegister; sym_kMwpascal]; ACTIONS 11645 [sym_kMessage];
   ACTIONS 11647 [sym_kDeprecated]; ACTIONS 1016 [sym_kExperimental; sym_kPlatform;
   sym_kUnimplemented; sym_kCvar]; ACTIONS 11649 [sym_kExport]; ACTIONS 1016 [sym_kFar;
   sym_kNear; sym_kSafecall; sym_kAssembler; sym_kNostackframe; sym_kInterrupt; sym_kNoreturn;
   sym_kIocheck; sym_kLocal; sym_kHardfloat; sym_kSoftfloat; sym_kMs_abi_default;
   sym_kMs_abi_cdecl; sym_kSaveregisters; sym_kSysv_abi_default; sym_kSysv_abi_cdecl;
   sym_kVectorcall; sym_kVarargs; sym_kWinapi]; ACTIONS 11651 [sym_kAlias];
   ACTIONS 1758 [sym_kAsm; sym_kBegin; sym_kClass; sym_kConst; sym_kConstructor; sym_kDestructor;
   sym_kExports; sym_kFunction]; ACTIONS 1016 [sym_kInline]; ACTIONS 1758 [sym_kLabel;
   sym_kProcedure; sym_kResourcestring; sym_kThreadvar; sym_kType; sym_kUses; sym_kVar]].

(** State 2343. *)
Definition ts_parse_table_2343 : parse_row :=
  [STATE 2887 [sym__ppIf]; STATE 2734 [sym__procAttributeNoExt];
   STATE 2735 [sym__procAttributesPp]; STATE 15193 [sym_procAttribute];
   STATE 2417 [aux_sym__declProc_repeat1]; ACTIONS 14222 [anon_sym_LBRACK];
   ACTIONS 1798 [aux_sym_ppUsesBlock_token1]; ACTIONS 3 [sym__space];
   ACTIONS 5 [sym_ppDirective]; ACTIONS 3 [sym_comment]; ACTIONS 1016 [sym_kDefault;
   sym_kNodefault]; ACTIONS 11641 [sym_kDispId]; ACTIONS 1791 [sym_kGeneric; sym_kOperator];
   ACTIONS 11643 [sym_kPublic]; ACTIONS 1016 [sym_kStatic; sym_kVirtual; sym_kAbstract;
   sym_kDynamic; sym_kOverride; sym_kOverload; sym_kReintroduce; sym_kStdcall; sym_kCdecl;
   sym_kCppdecl; sym_kPascal; sym_kRegister; sym_kMwpascal]; ACTIONS 11645 [sym_kMessage];
   ACTIONS 11647 [sym_kDeprecated]; ACTIONS 1016 [sym_kExperimental; sym_kPlatform;
   sym_kUnimplemented; sym_kCvar]; ACTIONS 11649 [sym_kExport]; ACTIONS 1016 [sym_kFar;
   sym_kNear; sym_kSafecall; sym_kAssembler; sym_kNostackframe; sym_kInterrupt; sym_kNoreturn;
   sym_kIocheck; sym_kLocal; sym_kHardfloat; sym_kSoftfloat; sym_kMs_abi_default;
   sym_kMs_abi_cdecl; sym_kSaveregisters; sym_kSysv_abi_default; sym_kSysv_abi_cdecl;
   sym_kVectorcall; sym_kVarargs; sym_kWinapi]; ACTIONS 11651 [sym_kAlias];
   ACTIONS 1791 [sym_kAsm; sym_kBegin; sym_kClass; sym_kConst; sym_kConstructor; sym_kDestructor;
   sym_kExports; sym_kFunction]; ACTIONS 1016 [sym_kInline]; ACTIONS 1791 [sym_kLabel;
   sym_kProcedure; sym_kResourcestring; sym_kThreadvar; sym_kType; sym_kUses; sym_kVar]].

(** State 2344. *)
Definition ts_parse_table_2344 : parse_row :=
  [STATE 2887 [sym__ppIf]; STATE 2734 [sym__procAttributeNoExt];
   STATE 2735 [sym__procAttributesPp]; STATE 15193 [sym_procAttribute];
   STATE 2355 [aux_sym__declProc_repeat1]; ACTIONS 14225 [anon_sym_LBRACK];
   ACTIONS 1843 [aux_sym_ppUsesBlock_token1]; ACTIONS 3 [sym__space];
   ACTIONS 5 [sym_ppDirective]; ACTIONS 3 [sym_comment]; ACTIONS 1016 [sym_kDefault;
   sym_kNodefault]; ACTIONS 11641 [sym_kDispId]; ACTIONS 1836 [sym_kGeneric; sym_kOperator];
   ACTIONS 11643 [sym_kPublic]; ACTIONS 1016 [sym_kStatic; sym_kVirtual; sym_kAbstract;
   sym_kDynamic; sym_kOverride; sym_kOverload; sym_kReintroduce; sym_kStdcall; sym_kCdecl;
   sym_kCppdecl; sym_kPascal; sym_kRegister; sym_kMwpascal]; ACTIONS 11645 [sym_kMessage];
   ACTIONS 11647 [sym_kDeprecated]; ACTIONS 1016 [sym_kExperimental; sym_kPlatform;
   sym_kUnimplemented; sym_kCvar]; ACTIONS 11649 [sym_kExport]; ACTIONS 1016 [sym_kFar;
   sym_kNear; sym_kSafecall; sym_kAssembler; sym_kNostackframe; sym_kInterrupt; sym_kNoreturn;
   sym_kIocheck; sym_kLocal; sym_kHardfloat; sym_kSoftfloat; sym_kMs_abi_default;
   sym_kMs_abi_cdecl; sym_kSaveregisters; sym_kSysv_abi_default; sym_kSysv_abi_cdecl;
   sym_kVectorcall; sym_kVarargs; sym_kWinapi]; ACTIONS 11651 [sym_kAlias];
   ACTIONS 1836 [sym_kAsm; sym_kBegin; sym_kClass; sym_kConst; sym_kConstructor; sym_kDestructor;
   sym_kExports; sym_kFunction]; ACTIONS 1016 [sym_kInline]; ACTIONS 1836 [sym_kLabel;
   sym_kProcedure; sym_kResourcestring; sym_kThreadvar; sym_kType; sym_kUses; sym_kVar]].

(** State 2345. *)
Definition ts_parse_table_2345 : parse_row :=
  [STATE 2887 [sym__ppIf]; STATE 2734 [sym__procAttributeNoExt];
   STATE 2735 [sym__procAttributesPp]; STATE 15193 [sym_procAttribute];
   STATE 2417 [aux_sym__declProc_repeat1]; ACTIONS 14228 [anon_sym_LBRACK];
   ACTIONS 1890 [aux_sym_ppUsesBlock_token1]; ACTIONS 3 [sym__space];
   ACTIONS 5 [sym_ppDirective]; ACTIONS 3 [sym_comment]; ACTIONS 1016 [sym_kDefault;
   sym_kNodefault]; ACTIONS 11641 [sym_kDispId]; ACTIONS 1883 [sym_kGeneric; sym_kOperator];
   ACTIONS 11643 [sym_kPublic]; ACTIONS 1016 [sym_kStatic; sym_kVirtual; sym_kAbstract;
   sym_kDynamic; sym_kOverride; sym_kOverload; sym_kReintroduce; sym_kStdcall; sym_kCdecl;
   sym_kCppdecl; sym_kPascal; sym_kRegister; sym_kMwpascal]; ACTIONS 11645 [sym_kMessage];
   ACTIONS 11647 [sym_kDeprecated]; ACTIONS 1016 [sym_kExperimental; sym_kPlatform;
   sym_kUnimplemented; sym_kCvar]; ACTIONS 11649 [sym_kExport]; ACTIONS 1016 [sym_kFar;
   sym_kNear; sym_kSafecall; sym_kAssembler; sym_kNostackframe; sym_kInterrupt; sym_kNoreturn;
   sym_kIocheck; sym_kLocal; sym_kHardfloat; sym_kSoftfloat; sym_kMs_abi_default;
   sym_kMs_abi_cdecl; sym_kSaveregisters; sym_kSysv_abi_default; sym_kSysv_abi_cdecl;
   sym_kVectorcall; sym_kVarargs; sym_kWinapi]; ACTIONS 11651 [sym_kAlias];
   ACTIONS 1883 [sym_kAsm; sym_kBegin; sym_kClass; sym_kConst; sym_kConstructor; sym_kDestructor;
   sym_kExports; sym_kFunction]; ACTIONS 1016 [sym_kInline]; ACTIONS 1883 [sym_kLabel;
   sym_kProcedure; sym_kResourcestring; sym_kThreadvar; sym_kType; sym_kUses; sym_kVar]].

(** State 2346. *)
Definition ts_parse_table_2346 : parse_row :=
  [STATE 2887 [sym__ppIf]; STATE 2734 [sym__procAttributeNoExt];
   STATE 2735 [sym__procAttributesPp]; STATE 15193 [sym_procAttribute];
   STATE 2360 [aux_sym__declProc_repeat1]; ACTIONS 14231 [anon_sym_LBRACK];
   ACTIONS 1921 [aux_sym_ppUsesBlock_token1]; ACTIONS 3 [sym__space];
   ACTIONS 5 [sym_ppDirective]; ACTIONS 3 [sym_comment]; ACTIONS 1016 [sym_kDefault;
   sym_kNodefault]; ACTIONS 11641 [sym_kDispId]; ACTIONS 1914 [sym_kGeneric; sym_kOperator];
   ACTIONS 11643 [sym_kPublic]; ACTIONS 1016 [sym_kStatic; sym_kVirtual; sym_kAbstract;
   sym_kDynamic; sym_kOverride; sym_kOverload; sym_kReintroduce; sym_kStdcall; sym_kCdecl;
   sym_kCppdecl; sym_kPascal; sym_kRegister; sym_kMwpascal]; ACTIONS 11645 [sym_kMessage];
   ACTIONS 11647 [sym_kDeprecated]; ACTIONS 1016 [sym_kExperimental; sym_kPlatform;
   sym_kUnimplemented; sym_kCvar]; ACTIONS 11649 [sym_kExport]; ACTIONS 1016 [sym_kFar;
   sym_kNear; sym_kSafecall; sym_kAssembler; sym_kNostackframe; sym_kInterrupt; sym_kNoreturn;
   sym_kIocheck; sym_kLocal; sym_kHardfloat; sym_kSoftfloat; sym_kMs_abi_default;
   sym_kMs_abi_cdecl; sym_kSaveregisters; sym_kSysv_abi_default; sym_kSysv_abi_cdecl;
   sym_kVectorcall; sym_kVarargs; sym_kWinapi]; ACTIONS 11651 [sym_kAlias];
   ACTIONS 1914 [sym_kAsm; sym_kBegin; sym_kClass; sym_kConst; sym_kConstructor; sym_kDestructor;
   sym_kExports; sym_kFunction]; ACTIONS 1016 [sym_kInline]; ACTIONS 1914 [sym_kLabel;
   sym_kProcedure; sym_kResourcestring; sym_kThreadvar; sym_kType; sym_kUses; sym_kVar]].

(** State 2347. *)
Definition ts_parse_table_2347 : parse_row :=
  [STATE 2887 [sym__ppIf]; STATE 2734 [sym__procAttributeNoExt];
   STATE 2735 [sym__procAttributesPp]; STATE 15193 [sym_procAttribute];
   STATE 2361 [aux_sym__declProc_repeat1]; ACTIONS 14234 [anon_sym_LBRACK];
   ACTIONS 1954 [aux_sym_ppUsesBlock_token1]; ACTIONS 3 [sym__space];
   ACTIONS 5 [sym_ppDirective]; ACTIONS 3 [sym_comment]; ACTIONS 1016 [sym_kDefault;
   sym_kNodefault]; ACTIONS 11641 [sym_kDispId]; ACTIONS 1947 [sym_kGeneric; sym_kOperator];
   ACTIONS 11643 [sym_kPublic]; ACTIONS 1016 [sym_kStatic; sym_kVirtual; sym_kAbstract;
   sym_kDynamic; sym_kOverride; sym_kOverload; sym_kReintroduce; sym_kStdcall; sym_kCdecl;
   sym_kCppdecl; sym_kPascal; sym_kRegister; sym_kMwpascal]; ACTIONS 11645 [sym_kMessage];
   ACTIONS 11647 [sym_kDeprecated]; ACTIONS 1016 [sym_kExperimental; sym_kPlatform;
   sym_kUnimplemented; sym_kCvar]; ACTIONS 11649 [sym_kExport]; ACTIONS 1016 [sym_kFar;
   sym_kNear; sym_kSafecall; sym_kAssembler; sym_kNostackframe; sym_kInterrupt; sym_kNoreturn;
   sym_kIocheck; sym_kLocal; sym_kHardfloat; sym_kSoftfloat; sym_kMs_abi_default;
   sym_kMs_abi_cdecl; sym_kSaveregisters; sym_kSysv_abi_default; sym_kSysv_abi_cdecl;
   sym_kVectorcall; sym_kVarargs; sym_kWinapi]; ACTIONS 11651 [sym_kAlias];
   ACTIONS 1947 [sym_kAsm; sym_kBegin; sym_kClass; sym_kConst; sym_kConstructor; sym_kDestructor;
   sym_kExports; sym_kFunction]; ACTIONS 1016 [sym_kInline]; ACTIONS 1947 [sym_kLabel;
   sym_kProcedure; sym_kResourcestring; sym_kThreadvar; sym_kType; sym_kUses; sym_kVar]].

(** State 2348. *)
Definition ts_parse_table_2348 : parse_row :=
  [STATE 2887 [sym__ppIf]; STATE 2734 [sym__procAttributeNoExt];
   STATE 2735 [sym__procAttributesPp]; STATE 15193 [sym_procAttribute];
   STATE 2363 [aux_sym__declProc_repeat1]; ACTIONS 14237 [anon_sym_LBRACK];
   ACTIONS 1999 [aux_sym_ppUsesBlock_token1]; ACTIONS 3 [sym__space];
   ACTIONS 5 [sym_ppDirective]; ACTIONS 3 [sym_comment]; ACTIONS 1016 [sym_kDefault;
   sym_kNodefault]; ACTIONS 11641 [sym_kDispId]; ACTIONS 1992 [sym_kGeneric; sym_kOperator];
   ACTIONS 11643 [sym_kPublic]; ACTIONS 1016 [sym_kStatic; sym_kVirtual; sym_kAbstract;
   sym_kDynamic; sym_kOverride; sym_kOverload; sym_kReintroduce; sym_kStdcall; sym_kCdecl;
   sym_kCppdecl; sym_kPascal; sym_kRegister; sym_kMwpascal]; ACTIONS 11645 [sym_kMessage];
   ACTIONS 11647 [sym_kDeprecated]; ACTIONS 1016 [sym_kExperimental; sym_kPlatform;
   sym_kUnimplemented; sym_kCvar]; ACTIONS 11649 [sym_kExport]; ACTIONS 1016 [sym_kFar;
   sym_kNear; sym_kSafecall; sym_kAssembler; sym_kNostackframe; sym_kInterrupt; sym_kNoreturn;
   sym_kIocheck; sym_kLocal; sym_kHardfloat; sym_kSoftfloat; sym_kMs_abi_default;
   sym_kMs_abi_cdecl; sym_kSaveregisters; sym_kSysv_abi_default; sym_kSysv_abi_cdecl;
   sym_kVectorcall; sym_kVarargs; sym_kWinapi]; ACTIONS 11651 [sym_kAlias];
   ACTIONS 1992 [sym_kAsm; sym_kBegin; sym_kClass; sym_kConst; sym_kConstructor; sym_kDestructor;
   sym_kExports; sym_kFunction]; ACTIONS 1016 [sym_kInline]; ACTIONS 1992 [sym_kLabel;
   sym_kProcedure; sym_kResourcestring; sym_kThreadvar; sym_kType; sym_kUses; sym_kVar]].

(** State 2349. *)
Definition ts_parse_table_2349 : parse_row :=
  [STATE 2887 [sym__ppIf]; STATE 2734 [sym__procAttributeNoExt];
   STATE 2735 [sym__procAttributesPp]; STATE 15193 [sym_procAttribute];
   STATE 2417 [aux_sym__declProc_repeat1]; ACTIONS 14240 [anon_sym_LBRACK];
   ACTIONS 2030 [aux_sym_ppUsesBlock_token1]; ACTIONS 3 [sym__space];
   ACTIONS 5 [sym_ppDirective]; ACTIONS 3 [sym_comment]; ACTIONS 1016 [sym_kDefault;
   sym_kNodefault]; ACTIONS 11641 [sym_kDispId]; ACTIONS 2023 [sym_kGeneric; sym_kOperator];
   ACTIONS 11643 [sym_kPublic]; ACTIONS 1016 [sym_kStatic; sym_kVirtual; sym_kAbstract;
   sym_kDynamic; sym_kOverride; sym_kOverload; sym_kReintroduce; sym_kStdcall; sym_kCdecl;
   sym_kCppdecl; sym_kPascal; sym_kRegister; sym_kMwpascal]; ACTIONS 11645 [sym_kMessage];
   ACTIONS 11647 [sym_kDeprecated]; ACTIONS 1016 [sym_kExperimental; sym_kPlatform;
   sym_kUnimplemented; sym_kCvar]; ACTIONS 11649 [sym_kExport]; ACTIONS 1016 [sym_kFar;
   sym_kNear; sym_kSafecall; sym_kAssembler; sym_kNostackframe; sym_kInterrupt; sym_kNoreturn;
   sym_kIocheck; sym_kLocal; sym_kHardfloat; sym_kSoftfloat; sym_kMs_abi_default;
   sym_kMs_abi_cdecl; sym_kSaveregisters; sym_kSysv_abi_default; sym_kSysv_abi_cdecl;
   sym_kVectorcall; sym_kVarargs; sym_kWinapi]; ACTIONS 11651 [sym_kAlias];
   ACTIONS 2023 [sym_kAsm; sym_kBegin; sym_kClass; sym_kConst; sym_kConstructor; sym_kDestructor;
   sym_kExports; sym_kFunction]; ACTIONS 1016 [sym_kInline]; ACTIONS 2023 [sym_kLabel;
   sym_kProcedure; sym_kResourcestring; sym_kThreadvar; sym_kType; sym_kUses; sym_kVar]].

(** State 2350. *)
Definition ts_parse_table_2350 : parse_row :=
  [STATE 2887 [sym__ppIf]; STATE 2734 [sym__procAttributeNoExt];
   STATE 2735 [sym__procAttributesPp]; STATE 15193 [sym_procAttribute];
   STATE 2417 [aux_sym__declProc_repeat1]; ACTIONS 14243 [anon_sym_LBRACK];
   ACTIONS 2063 [aux_sym_ppUsesBlock_token1]; ACTIONS 3 [sym__space];
   ACTIONS 5 [sym_ppDirective]; ACTIONS 3 [sym_comment]; ACTIONS 1016 [sym_kDefault;
   sym_kNodefault]; ACTIONS 11641 [sym_kDispId]; ACTIONS 2056 [sym_kGeneric; sym_kOperator];
   ACTIONS 11643 [sym_kPublic]; ACTIONS 1016 [sym_kStatic; sym_kVirtual; sym_kAbstract;
   sym_kDynamic; sym_kOverride; sym_kOverload; sym_kReintroduce; sym_kStdcall; sym_kCdecl;
   sym_kCppdecl; sym_kPascal; sym_kRegister; sym_kMwpascal]; ACTIONS 11645 [sym_kMessage];
   ACTIONS 11647 [sym_kDeprecated]; ACTIONS 1016 [sym_kExperimental; sym_kPlatform;
   sym_kUnimplemented; sym_kCvar]; ACTIONS 11649 [sym_kExport]; ACTIONS 1016 [sym_kFar;
   sym_kNear; sym_kSafecall; sym_kAssembler; sym_kNostackframe; sym_kInterrupt; sym_kNoreturn;
   sym_kIocheck; sym_kLocal; sym_kHardfloat; sym_kSoftfloat; sym_kMs_abi_default;
   sym_kMs_abi_cdecl; sym_kSaveregisters; sym_kSysv_abi_default; sym_kSysv_abi_cdecl;
   sym_kVectorcall; sym_kVarargs; sym_kWinapi]; ACTIONS 11651 [sym_kAlias];
   ACTIONS 2056 [sym_kAsm; sym_kBegin; sym_kClass; sym_kConst; sym_kConstructor; sym_kDestructor;
   sym_kExports; sym_kFunction]; ACTIONS 1016 [sym_kInline]; ACTIONS 2056 [sym_kLabel;
   sym_kProcedure; sym_kResourcestring; sym_kThreadvar; sym_kType; sym_kUses; sym_kVar]].

(** State 2351. *)
Definition ts_parse_table_2351 : parse_row :=
  [STATE 2887 [sym__ppIf]; STATE 2734 [sym__procAttributeNoExt];
   STATE 2735 [sym__procAttributesPp]; STATE 15193 [sym_procAttribute];
   STATE 2366 [aux_sym__declProc_repeat1]; ACTIONS 14246 [anon_sym_LBRACK];
   ACTIONS 2108 [aux_sym_ppUsesBlock_token1]; ACTIONS 3 [sym__space];
   ACTIONS 5 [sym_ppDirective]; ACTIONS 3 [sym_comment]; ACTIONS 1016 [sym_kDefault;
   sym_kNodefault]; ACTIONS 11641 [sym_kDispId]; ACTIONS 2101 [sym_kGeneric; sym_kOperator];
   ACTIONS 11643 [sym_kPublic]; ACTIONS 1016 [sym_kStatic; sym_kVirtual; sym_kAbstract;
   sym_kDynamic; sym_kOverride; sym_kOverload; sym_kReintroduce; sym_kStdcall; sym_kCdecl;
   sym_kCppdecl; sym_kPascal; sym_kRegister; sym_kMwpascal]; ACTIONS 11645 [sym_kMessage];
   ACTIONS 11647 [sym_kDeprecated]; ACTIONS 1016 [sym_kExperimental; sym_kPlatform;
   sym_kUnimplemented; sym_kCvar]; ACTIONS 11649 [sym_kExport]; ACTIONS 1016 [sym_kFar;
   sym_kNear; sym_kSafecall; sym_kAssembler; sym_kNostackframe; sym_kInterrupt; sym_kNoreturn;
   sym_kIocheck; sym_kLocal; sym_kHardfloat; sym_kSoftfloat; sym_kMs_abi_default;
   sym_kMs_abi_cdecl; sym_kSaveregisters; sym_kSysv_abi_default; sym_kSysv_abi_cdecl;
   sym_kVectorcall; sym_kVarargs; sym_kWinapi]; ACTIONS 11651 [sym_kAlias];
   ACTIONS 2101 [sym_kAsm; sym_kBegin; sym_kClass; sym_kConst; sym_kConstructor; sym_kDestructor;
   sym_kExports; sym_kFunction]; ACTIONS 1016 [sym_kInline]; ACTIONS 2101 [sym_kLabel;
   sym_kProcedure; sym_kResourcestring; sym_kThreadvar; sym_kType; sym_kUses; sym_kVar]].

(** State 2352. *)
Definition ts_parse_table_2352 : parse_row :=
  [STATE 2887 [sym__ppIf]; STATE 2734 [sym__procAttributeNoExt];
   STATE 2735 [sym__procAttributesPp]; STATE 15193 [sym_procAttribute];
   STATE 2417 [aux_sym__declProc_repeat1]; ACTIONS 14249 [anon_sym_LBRACK];
   ACTIONS 2280 [aux_sym_ppUsesBlock_token1]; ACTIONS 3 [sym__space];
   ACTIONS 5 [sym_ppDirective]; ACTIONS 3 [sym_comment]; ACTIONS 1016 [sym_kDefault;
   sym_kNodefault]; ACTIONS 11641 [sym_kDispId]; ACTIONS 2273 [sym_kGeneric; sym_kOperator];
   ACTIONS 11643 [sym_kPublic]; ACTIONS 1016 [sym_kStatic; sym_kVirtual; sym_kAbstract;
   sym_kDynamic; sym_kOverride; sym_kOverload; sym_kReintroduce; sym_kStdcall; sym_kCdecl;
   sym_kCppdecl; sym_kPascal; sym_kRegister; sym_kMwpascal]; ACTIONS 11645 [sym_kMessage];
   ACTIONS 11647 [sym_kDeprecated]; ACTIONS 1016 [sym_kExperimental; sym_kPlatform;
   sym_kUnimplemented; sym_kCvar]; ACTIONS 11649 [sym_kExport]; ACTIONS 1016 [sym_kFar;
   sym_kNear; sym_kSafecall; sym_kAssembler; sym_kNostackframe; sym_kInterrupt; sym_kNoreturn;
   sym_kIocheck; sym_kLocal; sym_kHardfloat; sym_kSoftfloat; sym_kMs_abi_default;
   sym_kMs_abi_cdecl; sym_kSaveregisters; sym_kSysv_abi_default; sym_kSysv_abi_cdecl;
   sym_kVectorcall; sym_kVarargs; sym_kWinapi]; ACTIONS 11651 [sym_kAlias];
   ACTIONS 2273 [sym_kAsm; sym_kBegin; sym_kClass; sym_kConst; sym_kConstructor; sym_kDestructor;
   sym_kExports; sym_kFunction]; ACTIONS 1016 [sym_kInline]; ACTIONS 2273 [sym_kLabel;
   sym_kProcedure; sym_kResourcestring; sym_kThreadvar; sym_kType; sym_kUses; sym_kVar]].

(** State 2353. *)
Definition ts_parse_table_2353 : parse_row :=
  [STATE 2887 [sym__ppIf]; STATE 2734 [sym__procAttributeNoExt];
   STATE 2735 [sym__procAttributesPp]; STATE 15193 [sym_procAttribute];
   STATE 2367 [aux_sym__declProc_repeat1]; ACTIONS 14252 [anon_sym_LBRACK];
   ACTIONS 2325 [aux_sym_ppUsesBlock_token1]; ACTIONS 3 [sym__space];
   ACTIONS 5 [sym_ppDirective]; ACTIONS 3 [sym_comment]; ACTIONS 1016 [sym_kDefault;
   sym_kNodefault]; ACTIONS 11641 [sym_kDispId]; ACTIONS 2318 [sym_kGeneric; sym_kOperator];
   ACTIONS 11643 [sym_kPublic]; ACTIONS 1016 [sym_kStatic; sym_kVirtual; sym_kAbstract;
   sym_kDynamic; sym_kOverride; sym_kOverload; sym_kReintroduce; sym_kStdcall; sym_kCdecl;
   sym_kCppdecl; sym_kPascal; sym_kRegister; sym_kMwpascal]; ACTIONS 11645 [sym_kMessage];
   ACTIONS 11647 [sym_kDeprecated]; ACTIONS 1016 [sym_kExperimental; sym_kPlatform;
   sym_kUnimplemented; sym_kCvar]; ACTIONS 11649 [sym_kExport]; ACTIONS 1016 [sym_kFar;
   sym_kNear; sym_kSafecall; sym_kAssembler; sym_kNostackframe; sym_kInterrupt; sym_kNoreturn;
   sym_kIocheck; sym_kLocal; sym_kHardfloat; sym_kSoftfloat; sym_kMs_abi_default;
   sym_kMs_abi_cdecl; sym_kSaveregisters; sym_kSysv_abi_default; sym_kSysv_abi_cdecl;
   sym_kVectorcall; sym_kVarargs; sym_kWinapi]; ACTIONS 11651 [sym_kAlias];
   ACTIONS 2318 [sym_kAsm; sym_kBegin; sym_kClass; sym_kConst; sym_kConstructor; sym_kDestructor;
   sym_kExports; sym_kFunction]; ACTIONS 1016 [sym_kInline]; ACTIONS 2318 [sym_kLabel;
   sym_kProcedure; sym_kResourcestring; sym_kThreadvar; sym_kType; sym_kUses; sym_kVar]].

(** State 2354. *)
Definition ts_parse_table_2354 : parse_row :=
  [STATE 2887 [sym__ppIf]; STATE 2734 [sym__procAttributeNoExt];
   STATE 2735 [sym__procAttributesPp]; STATE 15193 [sym_procAttribute];
   STATE 2368 [aux_sym__declProc_repeat1]; ACTIONS 14255 [anon_sym_LBRACK];
   ACTIONS 2358 [aux_sym_ppUsesBlock_token1]; ACTIONS 3 [sym__space];
   ACTIONS 5 [sym_ppDirective]; ACTIONS 3 [sym_comment]; ACTIONS 1016 [sym_kDefault;
   sym_kNodefault]; ACTIONS 11641 [sym_kDispId]; ACTIONS 2351 [sym_kGeneric; sym_kOperator];
   ACTIONS 11643 [sym_kPublic]; ACTIONS 1016 [sym_kStatic; sym_kVirtual; sym_kAbstract;
   sym_kDynamic; sym_kOverride; sym_kOverload; sym_kReintroduce; sym_kStdcall; sym_kCdecl;
   sym_kCppdecl; sym_kPascal; sym_kRegister; sym_kMwpascal]; ACTIONS 11645 [sym_kMessage];
   ACTIONS 11647 [sym_kDeprecated]; ACTIONS 1016 [sym_kExperimental; sym_kPlatform;
   sym_kUnimplemented; sym_kCvar]; ACTIONS 11649 [sym_kExport]; ACTIONS 1016 [sym_kFar;
   sym_kNear; sym_kSafecall; sym_kAssembler; sym_kNostackframe; sym_kInterrupt; sym_kNoreturn;
   sym_kIocheck; sym_kLocal; sym_kHardfloat; sym_kSoftfloat; sym_kMs_abi_default;
   sym_kMs_abi_cdecl; sym_kSaveregisters; sym_kSysv_abi_default; sym_kSysv_abi_cdecl;
   sym_kVectorcall; sym_kVarargs; sym_kWinapi]; ACTIONS 11651 [sym_kAlias];
   ACTIONS 2351 [sym_kAsm; sym_kBegin; sym_kClass; sym_kConst; sym_kConstructor; sym_kDestructor;
   sym_kExports; sym_kFunction]; ACTIONS 1016 [sym_kInline]; ACTIONS 2351 [sym_kLabel;
   sym_kProcedure; sym_kResourcestring; sym_kThreadvar; sym_kType; sym_kUses; sym_kVar]].

(** State 2355. *)
Definition ts_parse_table_2355 : parse_row :=
  [STATE 2887 [sym__ppIf]; STATE 2734 [sym__procAttributeNoExt];
   STATE 2735 [sym__procAttributesPp]; STATE 15193 [sym_procAttribute];
   STATE 2417 [aux_sym__declProc_repeat1]; ACTIONS 14258 [anon_sym_LBRACK];
   ACTIONS 2403 [aux_sym_ppUsesBlock_token1]; ACTIONS 3 [sym__space];
   ACTIONS 5 [sym_ppDirective]; ACTIONS 3 [sym_comment]; ACTIONS 1016 [sym_kDefault;
   sym_kNodefault]; ACTIONS 11641 [sym_kDispId]; ACTIONS 2396 [sym_kGeneric; sym_kOperator];
   ACTIONS 11643 [sym_kPublic]; ACTIONS 1016 [sym_kStatic; sym_kVirtual; sym_kAbstract;
   sym_kDynamic; sym_kOverride; sym_kOverload; sym_kReintroduce; sym_kStdcall; sym_kCdecl;
   sym_kCppdecl; sym_kPascal; sym_kRegister; sym_kMwpascal]; ACTIONS 11645 [sym_kMessage];
   ACTIONS 11647 [sym_kDeprecated]; ACTIONS 1016 [sym_kExperimental; sym_kPlatform;
   sym_kUnimplemented; sym_kCvar]; ACTIONS 11649 [sym_kExport]; ACTIONS 1016 [sym_kFar;
   sym_kNear; sym_kSafecall; sym_kAssembler; sym_kNostackframe; sym_kInterrupt; sym_kNoreturn;
   sym_kIocheck; sym_kLocal; sym_kHardfloat; sym_kSoftfloat; sym_kMs_abi_default;
   sym_kMs_abi_cdecl; sym_kSaveregisters; sym_kSysv_abi_default; sym_kSysv_abi_cdecl;
   sym_kVectorcall; sym_kVarargs; sym_kWinapi]; ACTIONS 11651 [sym_kAlias];
   ACTIONS 2396 [sym_kAsm; sym_kBegin; sym_kClass; sym_kConst; sym_kConstructor; sym_kDestructor;
   sym_kExports; sym_kFunction]; ACTIONS 1016 [sym_kInline]; ACTIONS 2396 [sym_kLabel;
   sym_kProcedure; sym_kResourcestring; sym_kThreadvar; sym_kType; sym_kUses; sym_kVar]].

(** State 2356. *)
Definition ts_parse_table_2356 : parse_row :=
  [STATE 2887 [sym__ppIf]; STATE 2734 [sym__procAttributeNoExt];
   STATE 2735 [sym__procAttributesPp]; STATE 15193 [sym_procAttribute];
   STATE 2352 [aux_sym__declProc_repeat1]; ACTIONS 14261 [anon_sym_LBRACK];
   ACTIONS 1734 [aux_sym_ppUsesBlock_token1]; ACTIONS 3 [sym__space];
   ACTIONS 5 [sym_ppDirective]; ACTIONS 3 [sym_comment]; ACTIONS 1016 [sym_kDefault;
   sym_kNodefault]; ACTIONS 11641 [sym_kDispId]; ACTIONS 1727 [sym_kGeneric; sym_kOperator];
   ACTIONS 11643 [sym_kPublic]; ACTIONS 1016 [sym_kStatic; sym_kVirtual; sym_kAbstract;
   sym_kDynamic; sym_kOverride; sym_kOverload; sym_kReintroduce; sym_kStdcall; sym_kCdecl;
   sym_kCppdecl; sym_kPascal; sym_kRegister; sym_kMwpascal]; ACTIONS 11645 [sym_kMessage];
   ACTIONS 11647 [sym_kDeprecated]; ACTIONS 1016 [sym_kExperimental; sym_kPlatform;
   sym_kUnimplemented; sym_kCvar]; ACTIONS 11649 [sym_kExport]; ACTIONS 1016 [sym_kFar;
   sym_kNear; sym_kSafecall; sym_kAssembler; sym_kNostackframe; sym_kInterrupt; sym_kNoreturn;
   sym_kIocheck; sym_kLocal; sym_kHardfloat; sym_kSoftfloat; sym_kMs_abi_default;
   sym_kMs_abi_cdecl; sym_kSaveregisters; sym_kSysv_abi_default; sym_kSysv_abi_cdecl;
   sym_kVectorcall; sym_kVarargs; sym_kWinapi]; ACTIONS 11651 [sym_kAlias];
   ACTIONS 1727 [sym_kAsm; sym_kBegin; sym_kClass; sym_kConst; sym_kConstructor; sym_kDestructor;
   sym_kExports; sym_kFunction]; ACTIONS 1016 [sym_kInline]; ACTIONS 1727 [sym_kLabel;
   sym_kProcedure; sym_kResourcestring; sym_kThreadvar; sym_kType; sym_kUses; sym_kVar]].

(** State 2357. *)
Definition ts_parse_table_2357 : parse_row :=
  [STATE 2887 [sym__ppIf]; STATE 2734 [sym__procAttributeNoExt];
   STATE 2735 [sym__procAttributesPp]; STATE 15193 [sym_procAttribute];
   STATE 2417 [aux_sym__declProc_repeat1]; ACTIONS 14264 [anon_sym_LBRACK];
   ACTIONS 4344 [aux_sym_ppUsesBlock_token1]; ACTIONS 3 [sym__space];
   ACTIONS 5 [sym_ppDirective]; ACTIONS 3 [sym_comment]; ACTIONS 1016 [sym_kDefault;
   sym_kNodefault]; ACTIONS 11641 [sym_kDispId]; ACTIONS 4337 [sym_kGeneric; sym_kOperator];
   ACTIONS 11643 [sym_kPublic]; ACTIONS 1016 [sym_kStatic; sym_kVirtual; sym_kAbstract;
   sym_kDynamic; sym_kOverride; sym_kOverload; sym_kReintroduce; sym_kStdcall; sym_kCdecl;
   sym_kCppdecl; sym_kPascal; sym_kRegister; sym_kMwpascal]; ACTIONS 11645 [sym_kMessage];
   ACTIONS 11647 [sym_kDeprecated]; ACTIONS 1016 [sym_kExperimental; sym_kPlatform;
   sym_kUnimplemented; sym_kCvar]; ACTIONS 11649 [sym_kExport]; ACTIONS 1016 [sym_kFar;
   sym_kNear; sym_kSafecall; sym_kAssembler; sym_kNostackframe; sym_kInterrupt; sym_kNoreturn;
   sym_kIocheck; sym_kLocal; sym_kHardfloat; sym_kSoftfloat; sym_kMs_abi_default;
   sym_kMs_abi_cdecl; sym_kSaveregisters; sym_kSysv_abi_default; sym_kSysv_abi_cdecl;
   sym_kVectorcall; sym_kVarargs; sym_kWinapi]; ACTIONS 11651 [sym_kAlias];
   ACTIONS 4337 [sym_kAsm; sym_kBegin; sym_kClass; sym_kConst; sym_kConstructor; sym_kDestructor;
   sym_kExports; sym_kFunction]; ACTIONS 1016 [sym_kInline]; ACTIONS 4337 [sym_kLabel;
   sym_kProcedure; sym_kResourcestring; sym_kThreadvar; sym_kType; sym_kUses; sym_kVar]].

(** State 2358. *)
Definition ts_parse_table_2358 : parse_row :=
  [STATE 2887 [sym__ppIf]; STATE 2734 [sym__procAttributeNoExt];
   STATE 2735 [sym__procAttributesPp]; STATE 15193 [sym_procAttribute];
   STATE 2398 [aux_sym__declProc_repeat1]; ACTIONS 14267 [anon_sym_LBRACK];
   ACTIONS 4413 [aux_sym_ppUsesBlock_token1]; ACTIONS 3 [sym__space];
   ACTIONS 5 [sym_ppDirective]; ACTIONS 3 [sym_comment]; ACTIONS 1016 [sym_kDefault;
   sym_kNodefault]; ACTIONS 11641 [sym_kDispId]; ACTIONS 4406 [sym_kGeneric; sym_kOperator];
   ACTIONS 11643 [sym_kPublic]; ACTIONS 1016 [sym_kStatic; sym_kVirtual; sym_kAbstract;
   sym_kDynamic; sym_kOverride; sym_kOverload; sym_kReintroduce; sym_kStdcall; sym_kCdecl;
   sym_kCppdecl; sym_kPascal; sym_kRegister; sym_kMwpascal]; ACTIONS 11645 [sym_kMessage];
   ACTIONS 11647 [sym_kDeprecated]; ACTIONS 1016 [sym_kExperimental; sym_kPlatform;
   sym_kUnimplemented; sym_kCvar]; ACTIONS 11649 [sym_kExport]; ACTIONS 1016 [sym_kFar;
   sym_kNear; sym_kSafecall; sym_kAssembler; sym_kNostackframe; sym_kInterrupt; sym_kNoreturn;
   sym_kIocheck; sym_kLocal; sym_kHardfloat; sym_kSoftfloat; sym_kMs_abi_default;
   sym_kMs_abi_cdecl; sym_kSaveregisters; sym_kSysv_abi_default; sym_kSysv_abi_cdecl;
   sym_kVectorcall; sym_kVarargs; sym_kWinapi]; ACTIONS 11651 [sym_kAlias];
   ACTIONS 4406 [sym_kAsm; sym_kBegin; sym_kClass; sym_kConst; sym_kConstructor; sym_kDestructor;
   sym_kExports; sym_kFunction]; ACTIONS 1016 [sym_kInline]; ACTIONS 4406 [sym_kLabel;
   sym_kProcedure; sym_kResourcestring; sym_kThreadvar; sym_kType; sym_kUses; sym_kVar]].

(** State 2359. *)
Definition ts_parse_table_2359 : parse_row :=
  [STATE 2887 [sym__ppIf]; STATE 2734 [sym__procAttributeNoExt];
   STATE 2735 [sym__procAttributesPp]; STATE 15193 [sym_procAttribute];
   STATE 2376 [aux_sym__declProc_repeat1]; ACTIONS 14270 [anon_sym_LBRACK];
   ACTIONS 2486 [aux_sym_ppUsesBlock_token1]; ACTIONS 3 [sym__space];
   ACTIONS 5 [sym_ppDirective]; ACTIONS 3 [sym_comment]; ACTIONS 1016 [sym_kDefault;
   sym_kNodefault]; ACTIONS 11641 [sym_kDispId]; ACTIONS 2479 [sym_kGeneric; sym_kOperator];
   ACTIONS 11643 [sym_kPublic]; ACTIONS 1016 [sym_kStatic; sym_kVirtual; sym_kAbstract;
   sym_kDynamic; sym_kOverride; sym_kOverload; sym_kReintroduce; sym_kStdcall; sym_kCdecl;
   sym_kCppdecl; sym_kPascal; sym_kRegister; sym_kMwpascal]; ACTIONS 11645 [sym_kMessage];
   ACTIONS 11647 [sym_kDeprecated]; ACTIONS 1016 [sym_kExperimental; sym_kPlatform;
   sym_kUnimplemented; sym_kCvar]; ACTIONS 11649 [sym_kExport]; ACTIONS 1016 [sym_kFar;
   sym_kNear; sym_kSafecall; sym_kAssembler; sym_kNostackframe; sym_kInterrupt; sym_kNoreturn;
   sym_kIocheck; sym_kLocal; sym_kHardfloat; sym_kSoftfloat; sym_kMs_abi_default;
   sym_kMs_abi_cdecl; sym_kSaveregisters; sym_kSysv_abi_default; sym_kSysv_abi_cdecl;
   sym_kVectorcall; sym_kVarargs; sym_kWinapi]; ACTIONS 11651 [sym_kAlias];
   ACTIONS 2479 [sym_kAsm; sym_kBegin; sym_kClass; sym_kConst; sym_kConstructor; sym_kDestructor;
   sym_kExports; sym_kFunction]; ACTIONS 1016 [sym_kInline]; ACTIONS 2479 [sym_kLabel;
   sym_kProcedure; sym_kResourcestring; sym_kThreadvar; sym_kType; sym_kUses; sym_kVar]].

(** State 2360. *)
Definition ts_parse_table_2360 : parse_row :=
  [STATE 2887 [sym__ppIf]; STATE 2734 [sym__procAttributeNoExt];
   STATE 2735 [sym__procAttributesPp]; STATE 15193 [sym_procAttribute];
   STATE 2417 [aux_sym__declProc_repeat1]; ACTIONS 14273 [anon_sym_LBRACK];
   ACTIONS 2517 [aux_sym_ppUsesBlock_token1]; ACTIONS 3 [sym__space];
   ACTIONS 5 [sym_ppDirective]; ACTIONS 3 [sym_comment]; ACTIONS 1016 [sym_kDefault;
   sym_kNodefault]; ACTIONS 11641 [sym_kDispId]; ACTIONS 2510 [sym_kGeneric; sym_kOperator];
   ACTIONS 11643 [sym_kPublic]; ACTIONS 1016 [sym_kStatic; sym_kVirtual; sym_kAbstract;
   sym_kDynamic; sym_kOverride; sym_kOverload; sym_kReintroduce; sym_kStdcall; sym_kCdecl;
   sym_kCppdecl; sym_kPascal; sym_kRegister; sym_kMwpascal]; ACTIONS 11645 [sym_kMessage];
   ACTIONS 11647 [sym_kDeprecated]; ACTIONS 1016 [sym_kExperimental; sym_kPlatform;
   sym_kUnimplemented; sym_kCvar]; ACTIONS 11649 [sym_kExport]; ACTIONS 1016 [sym_kFar;
   sym_kNear; sym_kSafecall; sym_kAssembler; sym_kNostackframe; sym_kInterrupt; sym_kNoreturn;
   sym_kIocheck; sym_kLocal; sym_kHardfloat; sym_kSoftfloat; sym_kMs_abi_default;
   sym_kMs_abi_cdecl; sym_kSaveregisters; sym_kSysv_abi_default; sym_kSysv_abi_cdecl;
   sym_kVectorcall; sym_kVarargs; sym_kWinapi]; ACTIONS 11651 [sym_kAlias];
   ACTIONS 2510 [sym_kAsm; sym_kBegin; sym_kClass; sym_kConst; sym_kConstructor; sym_kDestructor;
   sym_kExports; sym_kFunction]; ACTIONS 1016 [sym_kInline]; ACTIONS 2510 [sym_kLabel;
   sym_kProcedure; sym_kResourcestring; sym_kThreadvar; sym_kType; sym_kUses; sym_kVar]].

(** State 2361. *)
Definition ts_parse_table_2361 : parse_row :=
  [STATE 2887 [sym__ppIf]; STATE 2734 [sym__procAttributeNoExt];
   STATE 2735 [sym__procAttributesPp]; STATE 15193 [sym_procAttribute];
   STATE 2417 [aux_sym__declProc_repeat1]; ACTIONS 14276 [anon_sym_LBRACK];
   ACTIONS 2550 [aux_sym_ppUsesBlock_token1]; ACTIONS 3 [sym__space];
   ACTIONS 5 [sym_ppDirective]; ACTIONS 3 [sym_comment]; ACTIONS 1016 [sym_kDefault;
   sym_kNodefault]; ACTIONS 11641 [sym_kDispId]; ACTIONS 2543 [sym_kGeneric; sym_kOperator];
   ACTIONS 11643 [sym_kPublic]; ACTIONS 1016 [sym_kStatic; sym_kVirtual; sym_kAbstract;
   sym_kDynamic; sym_kOverride; sym_kOverload; sym_kReintroduce; sym_kStdcall; sym_kCdecl;
   sym_kCppdecl; sym_kPascal; sym_kRegister; sym_kMwpascal]; ACTIONS 11645 [sym_kMessage];
   ACTIONS 11647 [sym_kDeprecated]; ACTIONS 1016 [sym_kExperimental; sym_kPlatform;
   sym_kUnimplemented; sym_kCvar]; ACTIONS 11649 [sym_kExport]; ACTIONS 1016 [sym_kFar;
   sym_kNear; sym_kSafecall; sym_kAssembler; sym_kNostackframe; sym_kInterrupt; sym_kNoreturn;
   sym_kIocheck; sym_kLocal; sym_kHardfloat; sym_kSoftfloat; sym_kMs_abi_default;
   sym_kMs_abi_cdecl; sym_kSaveregisters; sym_kSysv_abi_default; sym_kSysv_abi_cdecl;
   sym_kVectorcall; sym_kVarargs; sym_kWinapi]; ACTIONS 11651 [sym_kAlias];
   ACTIONS 2543 [sym_kAsm; sym_kBegin; sym_kClass; sym_kConst; sym_kConstructor; sym_kDestructor;
   sym_kExports; sym_kFunction]; ACTIONS 1016 [sym_kInline]; ACTIONS 2543 [sym_kLabel;
   sym_kProcedure; sym_kResourcestring; sym_kThreadvar; sym_kType; sym_kUses; sym_kVar]].

(** State 2362. *)
Definition ts_parse_table_2362 : parse_row :=
  [STATE 2887 [sym__ppIf]; STATE 2734 [sym__procAttributeNoExt];
   STATE 2735 [sym__procAttributesPp]; STATE 15193 [sym_procAttribute];
   STATE 2379 [aux_sym__declProc_repeat1]; ACTIONS 14279 [anon_sym_LBRACK];
   ACTIONS 2597 [aux_sym_ppUsesBlock_token1]; ACTIONS 3 [sym__space];
   ACTIONS 5 [sym_ppDirective]; ACTIONS 3 [sym_comment]; ACTIONS 1016 [sym_kDefault;
   sym_kNodefault]; ACTIONS 11641 [sym_kDispId]; ACTIONS 2590 [sym_kGeneric; sym_kOperator];
   ACTIONS 11643 [sym_kPublic]; ACTIONS 1016 [sym_kStatic; sym_kVirtual; sym_kAbstract;
   sym_kDynamic; sym_kOverride; sym_kOverload; sym_kReintroduce; sym_kStdcall; sym_kCdecl;
   sym_kCppdecl; sym_kPascal; sym_kRegister; sym_kMwpascal]; ACTIONS 11645 [sym_kMessage];
   ACTIONS 11647 [sym_kDeprecated]; ACTIONS 1016 [sym_kExperimental; sym_kPlatform;
   sym_kUnimplemented; sym_kCvar]; ACTIONS 11649 [sym_kExport]; ACTIONS 1016 [sym_kFar;
   sym_kNear; sym_kSafecall; sym_kAssembler; sym_kNostackframe; sym_kInterrupt; sym_kNoreturn;
   sym_kIocheck; sym_kLocal; sym_kHardfloat; sym_kSoftfloat; sym_kMs_abi_default;
   sym_kMs_abi_cdecl; sym_kSaveregisters; sym_kSysv_abi_default; sym_kSysv_abi_cdecl;
   sym_kVectorcall; sym_kVarargs; sym_kWinapi]; ACTIONS 11651 [sym_kAlias];
   ACTIONS 2590 [sym_kAsm; sym_kBegin; sym_kClass; sym_kConst; sym_kConstructor; sym_kDestructor;
   sym_kExports; sym_kFunction]; ACTIONS 1016 [sym_kInline]; ACTIONS 2590 [sym_kLabel;
   sym_kProcedure; sym_kResourcestring; sym_kThreadvar; sym_kType; sym_kUses; sym_kVar]].

(** State 2363. *)
Definition ts_parse_table_2363 : parse_row :=
  [STATE 2887 [sym__ppIf]; STATE 2734 [sym__procAttributeNoExt];
   STATE 2735 [sym__procAttributesPp]; STATE 15193 [sym_procAttribute];
   STATE 2417 [aux_sym__declProc_repeat1]; ACTIONS 14282 [anon_sym_LBRACK];
   ACTIONS 2628 [aux_sym_ppUsesBlock_token1]; ACTIONS 3 [sym__space];
   ACTIONS 5 [sym_ppDirective]; ACTIONS 3 [sym_comment]; ACTIONS 1016 [sym_kDefault;
   sym_kNodefault]; ACTIONS 11641 [sym_kDispId]; ACTIONS 2621 [sym_kGeneric; sym_kOperator];
   ACTIONS 11643 [sym_kPublic]; ACTIONS 1016 [sym_kStatic; sym_kVirtual; sym_kAbstract;
   sym_kDynamic; sym_kOverride; sym_kOverload; sym_kReintroduce; sym_kStdcall; sym_kCdecl;
   sym_kCppdecl; sym_kPascal; sym_kRegister; sym_kMwpascal]; ACTIONS 11645 [sym_kMessage];
   ACTIONS 11647 [sym_kDeprecated]; ACTIONS 1016 [sym_kExperimental; sym_kPlatform;
   sym_kUnimplemented; sym_kCvar]; ACTIONS 11649 [sym_kExport]; ACTIONS 1016 [sym_kFar;
   sym_kNear; sym_kSafecall; sym_kAssembler; sym_kNostackframe; sym_kInterrupt; sym_kNoreturn;
   sym_kIocheck; sym_kLocal; sym_kHardfloat; sym_kSoftfloat; sym_kMs_abi_default;
   sym_kMs_abi_cdecl; sym_kSaveregisters; sym_kSysv_abi_default; sym_kSysv_abi_cdecl;
   sym_kVectorcall; sym_kVarargs; sym_kWinapi]; ACTIONS 11651 [sym_kAlias];
   ACTIONS 2621 [sym_kAsm; sym_kBegin; sym_kClass; sym_kConst; sym_kConstructor; sym_kDestructor;
   sym_kExports; sym_kFunction]; ACTIONS 1016 [sym_kInline]; ACTIONS 2621 [sym_kLabel;
   sym_kProcedure; sym_kResourcestring; sym_kThreadvar; sym_kType; sym_kUses; sym_kVar]].

(** State 2364. *)
Definition ts_parse_table_2364 : parse_row :=
  [STATE 2887 [sym__ppIf]; STATE 2734 [sym__procAttributeNoExt];
   STATE 2735 [sym__procAttributesPp]; STATE 15193 [sym_procAttribute];
   STATE 2380 [aux_sym__declProc_repeat1]; ACTIONS 14285 [anon_sym_LBRACK];
   ACTIONS 2659 [aux_sym_ppUsesBlock_token1]; ACTIONS 3 [sym__space];
   ACTIONS 5 [sym_ppDirective]; ACTIONS 3 [sym_comment]; ACTIONS 1016 [sym_kDefault;
   sym_kNodefault]; ACTIONS 11641 [sym_kDispId]; ACTIONS 2652 [sym_kGeneric; sym_kOperator];
   ACTIONS 11643 [sym_kPublic]; ACTIONS 1016 [sym_kStatic; sym_kVirtual; sym_kAbstract;
   sym_kDynamic; sym_kOverride; sym_kOverload; sym_kReintroduce; sym_kStdcall; sym_kCdecl;
   sym_kCppdecl; sym_kPascal; sym_kRegister; sym_kMwpascal]; ACTIONS 11645 [sym_kMessage];
   ACTIONS 11647 [sym_kDeprecated]; ACTIONS 1016 [sym_kExperimental; sym_kPlatform;
   sym_kUnimplemented; sym_kCvar]; ACTIONS 11649 [sym_kExport]; ACTIONS 1016 [sym_kFar;
   sym_kNear; sym_kSafecall; sym_kAssembler; sym_kNostackframe; sym_kInterrupt; sym_kNoreturn;
   sym_kIocheck; sym_kLocal; sym_kHardfloat; sym_kSoftfloat; sym_kMs_abi_default;
   sym_kMs_abi_cdecl; sym_kSaveregisters; sym_kSysv_abi_default; sym_kSysv_abi_cdecl;
   sym_kVectorcall; sym_kVarargs; sym_kWinapi]; ACTIONS 11651 [sym_kAlias];
   ACTIONS 2652 [sym_kAsm; sym_kBegin; sym_kClass; sym_kConst; sym_kConstructor; sym_kDestructor;
   sym_kExports; sym_kFunction]; ACTIONS 1016 [sym_kInline]; ACTIONS 2652 [sym_kLabel;
   sym_kProcedure; sym_kResourcestring; sym_kThreadvar; sym_kType; sym_kUses; sym_kVar]].

(** State 2365. *)
Definition ts_parse_table_2365 : parse_row :=
  [STATE 2887 [sym__ppIf]; STATE 2734 [sym__procAttributeNoExt];
   STATE 2735 [sym__procAttributesPp]; STATE 15193 [sym_procAttribute];
   STATE 2381 [aux_sym__declProc_repeat1]; ACTIONS 14288 [anon_sym_LBRACK];
   ACTIONS 2692 [aux_sym_ppUsesBlock_token1]; ACTIONS 3 [sym__space];
   ACTIONS 5 [sym_ppDirective]; ACTIONS 3 [sym_comment]; ACTIONS 1016 [sym_kDefault;
   sym_kNodefault]; ACTIONS 11641 [sym_kDispId]; ACTIONS 2685 [sym_kGeneric; sym_kOperator];
   ACTIONS 11643 [sym_kPublic]; ACTIONS 1016 [sym_kStatic; sym_kVirtual; sym_kAbstract;
   sym_kDynamic; sym_kOverride; sym_kOverload; sym_kReintroduce; sym_kStdcall; sym_kCdecl;
   sym_kCppdecl; sym_kPascal; sym_kRegister; sym_kMwpascal]; ACTIONS 11645 [sym_kMessage];
   ACTIONS 11647 [sym_kDeprecated]; ACTIONS 1016 [sym_kExperimental; sym_kPlatform;
   sym_kUnimplemented; sym_kCvar]; ACTIONS 11649 [sym_kExport]; ACTIONS 1016 [sym_kFar;
   sym_kNear; sym_kSafecall; sym_kAssembler; sym_kNostackframe; sym_kInterrupt; sym_kNoreturn;
   sym_kIocheck; sym_kLocal; sym_kHardfloat; sym_kSoftfloat; sym_kMs_abi_default;
   sym_kMs_abi_cdecl; sym_kSaveregisters; sym_kSysv_abi_default; sym_kSysv_abi_cdecl;
   sym_kVectorcall; sym_kVarargs; sym_kWinapi]; ACTIONS 11651 [sym_kAlias];
   ACTIONS 2685 [sym_kAsm; sym_kBegin; sym_kClass; sym_kConst; sym_kConstructor; sym_kDestructor;
   sym_kExports; sym_kFunction]; ACTIONS 1016 [sym_kInline]; ACTIONS 2685 [sym_kLabel;
   sym_kProcedure; sym_kResourcestring; sym_kThreadvar; sym_kType; sym_kUses; sym_kVar]].

(** State 2366. *)
Definition ts_parse_table_2366 : parse_row :=
  [STATE 2887 [sym__ppIf]; STATE 2734 [sym__procAttributeNoExt];
   STATE 2735 [sym__procAttributesPp]; STATE 15193 [sym_procAttribute];
   STATE 2417 [aux_sym__declProc_repeat1]; ACTIONS 14291 [anon_sym_LBRACK];
   ACTIONS 2739 [aux_sym_ppUsesBlock_token1]; ACTIONS 3 [sym__space];
   ACTIONS 5 [sym_ppDirective]; ACTIONS 3 [sym_comment]; ACTIONS 1016 [sym_kDefault;
   sym_kNodefault]; ACTIONS 11641 [sym_kDispId]; ACTIONS 2732 [sym_kGeneric; sym_kOperator];
   ACTIONS 11643 [sym_kPublic]; ACTIONS 1016 [sym_kStatic; sym_kVirtual; sym_kAbstract;
   sym_kDynamic; sym_kOverride; sym_kOverload; sym_kReintroduce; sym_kStdcall; sym_kCdecl;
   sym_kCppdecl; sym_kPascal; sym_kRegister; sym_kMwpascal]; ACTIONS 11645 [sym_kMessage];
   ACTIONS 11647 [sym_kDeprecated]; ACTIONS 1016 [sym_kExperimental; sym_kPlatform;
   sym_kUnimplemented; sym_kCvar]; ACTIONS 11649 [sym_kExport]; ACTIONS 1016 [sym_kFar;
   sym_kNear; sym_kSafecall; sym_kAssembler; sym_kNostackframe; sym_kInterrupt; sym_kNoreturn;
   sym_kIocheck; sym_kLocal; sym_kHardfloat; sym_kSoftfloat; sym_kMs_abi_default;
   sym_kMs_abi_cdecl; sym_kSaveregisters; sym_kSysv_abi_default; sym_kSysv_abi_cdecl;
   sym_kVectorcall; sym_kVarargs; sym_kWinapi]; ACTIONS 11651 [sym_kAlias];
   ACTIONS 2732 [sym_kAsm; sym_kBegin; sym_kClass; sym_kConst; sym_kConstructor; sym_kDestructor;
   sym_kExports; sym_kFunction]; ACTIONS 1016 [sym_kInline]; ACTIONS 2732 [sym_kLabel;
   sym_kProcedure; sym_kResourcestring; sym_kThreadvar; sym_kType; sym_kUses; sym_kVar]].

(** State 2367. *)
Definition ts_parse_table_2367 : parse_row :=
  [STATE 2887 [sym__ppIf]; STATE 2734 [sym__procAttributeNoExt];
   STATE 2735 [sym__procAttributesPp]; STATE 15193 [sym_procAttribute];
   STATE 2417 [aux_sym__declProc_repeat1]; ACTIONS 14294 [anon_sym_LBRACK];
   ACTIONS 2848 [aux_sym_ppUsesBlock_token1]; ACTIONS 3 [sym__space];
   ACTIONS 5 [sym_ppDirective]; ACTIONS 3 [sym_comment]; ACTIONS 1016 [sym_kDefault;
   sym_kNodefault]; ACTIONS 11641 [sym_kDispId]; ACTIONS 2841 [sym_kGeneric; sym_kOperator];
   ACTIONS 11643 [sym_kPublic]; ACTIONS 1016 [sym_kStatic; sym_kVirtual; sym_kAbstract;
   sym_kDynamic; sym_kOverride; sym_kOverload; sym_kReintroduce; sym_kStdcall; sym_kCdecl;
   sym_kCppdecl; sym_kPascal; sym_kRegister; sym_kMwpascal]; ACTIONS 11645 [sym_kMessage];
   ACTIONS 11647 [sym_kDeprecated]; ACTIONS 1016 [sym_kExperimental; sym_kPlatform;
   sym_kUnimplemented; sym_kCvar]; ACTIONS 11649 [sym_kExport]; ACTIONS 1016 [sym_kFar;
   sym_kNear; sym_kSafecall; sym_kAssembler; sym_kNostackframe; sym_kInterrupt; sym_kNoreturn;
   sym_kIocheck; sym_kLocal; sym_kHardfloat; sym_kSoftfloat; sym_kMs_abi_default;
   sym_kMs_abi_cdecl; sym_kSaveregisters; sym_kSysv_abi_default; sym_kSysv_abi_cdecl;
   sym_kVectorcall; sym_kVarargs; sym_kWinapi]; ACTIONS 11651 [sym_kAlias];
   ACTIONS 2841 [sym_kAsm; sym_kBegin; sym_kClass; sym_kConst; sym_kConstructor; sym_kDestructor;
   sym_kExports; sym_kFunction]; ACTIONS 1016 [sym_kInline]; ACTIONS 2841 [sym_kLabel;
   sym_kProcedure; sym_kResourcestring; sym_kThreadvar; sym_kType; sym_kUses; sym_kVar]].

(** State 2368. *)
Definition ts_parse_table_2368 : parse_row :=
  [STATE 2887 [sym__ppIf]; STATE 2734 [sym__procAttributeNoExt];
   STATE 2735 [sym__procAttributesPp]; STATE 15193 [sym_procAttribute];
   STATE 2417 [aux_sym__declProc_repeat1]; ACTIONS 14297 [anon_sym_LBRACK];
   ACTIONS 2881 [aux_sym_ppUsesBlock_token1]; ACTIONS 3 [sym__space];
   ACTIONS 5 [sym_ppDirective]; ACTIONS 3 [sym_comment]; ACTIONS 1016 [sym_kDefault;
   sym_kNodefault]; ACTIONS 11641 [sym_kDispId]; ACTIONS 2874 [sym_kGeneric; sym_kOperator];
   ACTIONS 11643 [sym_kPublic]; ACTIONS 1016 [sym_kStatic; sym_kVirtual; sym_kAbstract;
   sym_kDynamic; sym_kOverride; sym_kOverload; sym_kReintroduce; sym_kStdcall; sym_kCdecl;
   sym_kCppdecl; sym_kPascal; sym_kRegister; sym_kMwpascal]; ACTIONS 11645 [sym_kMessage];
   ACTIONS 11647 [sym_kDeprecated]; ACTIONS 1016 [sym_kExperimental; sym_kPlatform;
   sym_kUnimplemented; sym_kCvar]; ACTIONS 11649 [sym_kExport]; ACTIONS 1016 [sym_kFar;
   sym_kNear; sym_kSafecall; sym_kAssembler; sym_kNostackframe; sym_kInterrupt; sym_kNoreturn;
   sym_kIocheck; sym_kLocal; sym_kHardfloat; sym_kSoftfloat; sym_kMs_abi_default;
   sym_kMs_abi_cdecl; sym_kSaveregisters; sym_kSysv_abi_default; sym_kSysv_abi_cdecl;
   sym_kVectorcall; sym_kVarargs; sym_kWinapi]; ACTIONS 11651 [sym_kAlias];
   ACTIONS 2874 [sym_kAsm; sym_kBegin; sym_kClass; sym_kConst; sym_kConstructor; sym_kDestructor;
   sym_kExports; sym_kFunction]; ACTIONS 1016 [sym_kInline]; ACTIONS 2874 [sym_kLabel;
   sym_kProcedure; sym_kResourcestring; sym_kThreadvar; sym_kType; sym_kUses; sym_kVar]].

(** State 2369. *)
Definition ts_parse_table_2369 : parse_row :=
  [STATE 2887 [sym__ppIf]; STATE 2734 [sym__procAttributeNoExt];
   STATE 2735 [sym__procAttributesPp]; STATE 15193 [sym_procAttribute];
   STATE 2383 [aux_sym__declProc_repeat1]; ACTIONS 14300 [anon_sym_LBRACK];
   ACTIONS 2914 [aux_sym_ppUsesBlock_token1]; ACTIONS 3 [sym__space];
   ACTIONS 5 [sym_ppDirective]; ACTIONS 3 [sym_comment]; ACTIONS 1016 [sym_kDefault;
   sym_kNodefault]; ACTIONS 11641 [sym_kDispId]; ACTIONS 2907 [sym_kGeneric; sym_kOperator];
   ACTIONS 11643 [sym_kPublic]; ACTIONS 1016 [sym_kStatic; sym_kVirtual; sym_kAbstract;
   sym_kDynamic; sym_kOverride; sym_kOverload; sym_kReintroduce; sym_kStdcall; sym_kCdecl;
   sym_kCppdecl; sym_kPascal; sym_kRegister; sym_kMwpascal]; ACTIONS 11645 [sym_kMessage];
   ACTIONS 11647 [sym_kDeprecated]; ACTIONS 1016 [sym_kExperimental; sym_kPlatform;
   sym_kUnimplemented; sym_kCvar]; ACTIONS 11649 [sym_kExport]; ACTIONS 1016 [sym_kFar;
   sym_kNear; sym_kSafecall; sym_kAssembler; sym_kNostackframe; sym_kInterrupt; sym_kNoreturn;
   sym_kIocheck; sym_kLocal; sym_kHardfloat; sym_kSoftfloat; sym_kMs_abi_default;
   sym_kMs_abi_cdecl; sym_kSaveregisters; sym_kSysv_abi_default; sym_kSysv_abi_cdecl;
   sym_kVectorcall; sym_kVarargs; sym_kWinapi]; ACTIONS 11651 [sym_kAlias];
   ACTIONS 2907 [sym_kAsm; sym_kBegin; sym_kClass; sym_kConst; sym_kConstructor; sym_kDestructor;
   sym_kExports; sym_kFunction]; ACTIONS 1016 [sym_kInline]; ACTIONS 2907 [sym_kLabel;
   sym_kProcedure; sym_kResourcestring; sym_kThreadvar; sym_kType; sym_kUses; sym_kVar]].

(** State 2370. *)
Definition ts_parse_table_2370 : parse_row :=
  [STATE 2887 [sym__ppIf]; STATE 2734 [sym__procAttributeNoExt];
   STATE 2735 [sym__procAttributesPp]; STATE 15193 [sym_procAttribute];
   STATE 2399 [aux_sym__declProc_repeat1]; ACTIONS 14303 [anon_sym_LBRACK];
   ACTIONS 4709 [aux_sym_ppUsesBlock_token1]; ACTIONS 3 [sym__space];
   ACTIONS 5 [sym_ppDirective]; ACTIONS 3 [sym_comment]; ACTIONS 1016 [sym_kDefault;
   sym_kNodefault]; ACTIONS 11641 [sym_kDispId]; ACTIONS 4702 [sym_kGeneric; sym_kOperator];
   ACTIONS 11643 [sym_kPublic]; ACTIONS 1016 [sym_kStatic; sym_kVirtual; sym_kAbstract;
   sym_kDynamic; sym_kOverride; sym_kOverload; sym_kReintroduce; sym_kStdcall; sym_kCdecl;
   sym_kCppdecl; sym_kPascal; sym_kRegister; sym_kMwpascal]; ACTIONS 11645 [sym_kMessage];
   ACTIONS 11647 [sym_kDeprecated]; ACTIONS 1016 [sym_kExperimental; sym_kPlatform;
   sym_kUnimplemented; sym_kCvar]; ACTIONS 11649 [sym_kExport]; ACTIONS 1016 [sym_kFar;
   sym_kNear; sym_kSafecall; sym_kAssembler; sym_kNostackframe; sym_kInterrupt; sym_kNoreturn;
   sym_kIocheck; sym_kLocal; sym_kHardfloat; sym_kSoftfloat; sym_kMs_abi_default;
   sym_kMs_abi_cdecl; sym_kSaveregisters; sym_kSysv_abi_default; sym_kSysv_abi_cdecl;
   sym_kVectorcall; sym_kVarargs; sym_kWinapi]; ACTIONS 11651 [sym_kAlias];
   ACTIONS 4702 [sym_kAsm; sym_kBegin; sym_kClass; sym_kConst; sym_kConstructor; sym_kDestructor;
   sym_kExports; sym_kFunction]; ACTIONS 1016 [sym_kInline]; ACTIONS 4702 [sym_kLabel;
   sym_kProcedure; sym_kResourcestring; sym_kThreadvar; sym_kType; sym_kUses; sym_kVar]].

(** State 2371. *)
Definition ts_parse_table_2371 : parse_row :=
  [STATE 2887 [sym__ppIf]; STATE 2734 [sym__procAttributeNoExt];
   STATE 2735 [sym__procAttributesPp]; STATE 15193 [sym_procAttribute];
   STATE 2417 [aux_sym__declProc_repeat1]; ACTIONS 14306 [anon_sym_LBRACK];
   ACTIONS 4827 [aux_sym_ppUsesBlock_token1]; ACTIONS 3 [sym__space];
   ACTIONS 5 [sym_ppDirective]; ACTIONS 3 [sym_comment]; ACTIONS 1016 [sym_kDefault;
   sym_kNodefault]; ACTIONS 11641 [sym_kDispId]; ACTIONS 4820 [sym_kGeneric; sym_kOperator];
   ACTIONS 11643 [sym_kPublic]; ACTIONS 1016 [sym_kStatic; sym_kVirtual; sym_kAbstract;
   sym_kDynamic; sym_kOverride; sym_kOverload; sym_kReintroduce; sym_kStdcall; sym_kCdecl;
   sym_kCppdecl; sym_kPascal; sym_kRegister; sym_kMwpascal]; ACTIONS 11645 [sym_kMessage];
   ACTIONS 11647 [sym_kDeprecated]; ACTIONS 1016 [sym_kExperimental; sym_kPlatform;
   sym_kUnimplemented; sym_kCvar]; ACTIONS 11649 [sym_kExport]; ACTIONS 1016 [sym_kFar;
   sym_kNear; sym_kSafecall; sym_kAssembler; sym_kNostackframe; sym_kInterrupt; sym_kNoreturn;
   sym_kIocheck; sym_kLocal; sym_kHardfloat; sym_kSoftfloat; sym_kMs_abi_default;
   sym_kMs_abi_cdecl; sym_kSaveregisters; sym_kSysv_abi_default; sym_kSysv_abi_cdecl;
   sym_kVectorcall; sym_kVarargs; sym_kWinapi]; ACTIONS 11651 [sym_kAlias];
   ACTIONS 4820 [sym_kAsm; sym_kBegin; sym_kClass; sym_kConst; sym_kConstructor; sym_kDestructor;
   sym_kExports; sym_kFunction]; ACTIONS 1016 [sym_kInline]; ACTIONS 4820 [sym_kLabel;
   sym_kProcedure; sym_kResourcestring; sym_kThreadvar; sym_kType; sym_kUses; sym_kVar]].

(** State 2372. *)
Definition ts_parse_table_2372 : parse_row :=
  [STATE 2887 [sym__ppIf]; STATE 2734 [sym__procAttributeNoExt];
   STATE 2735 [sym__procAttributesPp]; STATE 15193 [sym_procAttribute];
   STATE 2409 [aux_sym__declProc_repeat1]; ACTIONS 14309 [anon_sym_LBRACK];
   ACTIONS 5197 [aux_sym_ppUsesBlock_token1]; ACTIONS 3 [sym__space];
   ACTIONS 5 [sym_ppDirective]; ACTIONS 3 [sym_comment]; ACTIONS 1016 [sym_kDefault;
   sym_kNodefault]; ACTIONS 11641 [sym_kDispId]; ACTIONS 5190 [sym_kGeneric; sym_kOperator];
   ACTIONS 11643 [sym_kPublic]; ACTIONS 1016 [sym_kStatic; sym_kVirtual; sym_kAbstract;
   sym_kDynamic; sym_kOverride; sym_kOverload; sym_kReintroduce; sym_kStdcall; sym_kCdecl;
   sym_kCppdecl; sym_kPascal; sym_kRegister; sym_kMwpascal]; ACTIONS 11645 [sym_kMessage];
   ACTIONS 11647 [sym_kDeprecated]; ACTIONS 1016 [sym_kExperimental; sym_kPlatform;
   sym_kUnimplemented; sym_kCvar]; ACTIONS 11649 [sym_kExport]; ACTIONS 1016 [sym_kFar;
   sym_kNear; sym_kSafecall; sym_kAssembler; sym_kNostackframe; sym_kInterrupt; sym_kNoreturn;
   sym_kIocheck; sym_kLocal; sym_kHardfloat; sym_kSoftfloat; sym_kMs_abi_default;
   sym_kMs_abi_cdecl; sym_kSaveregisters; sym_kSysv_abi_default; sym_kSysv_abi_cdecl;
   sym_kVectorcall; sym_kVarargs; sym_kWinapi]; ACTIONS 11651 [sym_kAlias];
   ACTIONS 5190 [sym_kAsm; sym_kBegin; sym_kClass; sym_kConst; sym_kConstructor; sym_kDestructor;
   sym_kExports; sym_kFunction]; ACTIONS 1016 [sym_kInline]; ACTIONS 5190 [sym_kLabel;
   sym_kProcedure; sym_kResourcestring; sym_kThreadvar; sym_kType; sym_kUses; sym_kVar]].

(** State 2373. *)
Definition ts_parse_table_2373 : parse_row :=
  [STATE 2887 [sym__ppIf]; STATE 2734 [sym__procAttributeNoExt];
   STATE 2735 [sym__procAttributesPp]; STATE 15193 [sym_procAttribute];
   STATE 2417 [aux_sym__declProc_repeat1]; ACTIONS 14312 [anon_sym_LBRACK];
   ACTIONS 5284 [aux_sym_ppUsesBlock_token1]; ACTIONS 3 [sym__space];
   ACTIONS 5 [sym_ppDirective]; ACTIONS 3 [sym_comment]; ACTIONS 1016 [sym_kDefault;
   sym_kNodefault]; ACTIONS 11641 [sym_kDispId]; ACTIONS 5277 [sym_kGeneric; sym_kOperator];
   ACTIONS 11643 [sym_kPublic]; ACTIONS 1016 [sym_kStatic; sym_kVirtual; sym_kAbstract;
   sym_kDynamic; sym_kOverride; sym_kOverload; sym_kReintroduce; sym_kStdcall; sym_kCdecl;
   sym_kCppdecl; sym_kPascal; sym_kRegister; sym_kMwpascal]; ACTIONS 11645 [sym_kMessage];
   ACTIONS 11647 [sym_kDeprecated]; ACTIONS 1016 [sym_kExperimental; sym_kPlatform;
   sym_kUnimplemented; sym_kCvar]; ACTIONS 11649 [sym_kExport]; ACTIONS 1016 [sym_kFar;
   sym_kNear; sym_kSafecall; sym_kAssembler; sym_kNostackframe; sym_kInterrupt; sym_kNoreturn;
   sym_kIocheck; sym_kLocal; sym_kHardfloat; sym_kSoftfloat; sym_kMs_abi_default;
   sym_kMs_abi_cdecl; sym_kSaveregisters; sym_kSysv_abi_default; sym_kSysv_abi_cdecl;
   sym_kVectorcall; sym_kVarargs; sym_kWinapi]; ACTIONS 11651 [sym_kAlias];
   ACTIONS 5277 [sym_kAsm; sym_kBegin; sym_kClass; sym_kConst; sym_kConstructor; sym_kDestructor;
   sym_kExports; sym_kFunction]; ACTIONS 1016 [sym_kInline]; ACTIONS 5277 [sym_kLabel;
   sym_kProcedure; sym_kResourcestring; sym_kThreadvar; sym_kType; sym_kUses; sym_kVar]].

(** State 2374. *)
Definition ts_parse_table_2374 : parse_row :=
  [STATE 2887 [sym__ppIf]; STATE 2734 [sym__procAttributeNoExt];
   STATE 2735 [sym__procAttributesPp]; STATE 15193 [sym_procAttribute];
   STATE 2471 [aux_sym__declProc_repeat1]; ACTIONS 14315 [anon_sym_LBRACK];
   ACTIONS 5574 [aux_sym_ppUsesBlock_token1]; ACTIONS 3 [sym__space];
   ACTIONS 5 [sym_ppDirective]; ACTIONS 3 [sym_comment]; ACTIONS 1016 [sym_kDefault;
   sym_kNodefault]; ACTIONS 11641 [sym_kDispId]; ACTIONS 5567 [sym_kGeneric; sym_kOperator];
   ACTIONS 11643 [sym_kPublic]; ACTIONS 1016 [sym_kStatic; sym_kVirtual; sym_kAbstract;
   sym_kDynamic; sym_kOverride; sym_kOverload; sym_kReintroduce; sym_kStdcall; sym_kCdecl;
   sym_kCppdecl; sym_kPascal; sym_kRegister; sym_kMwpascal]; ACTIONS 11645 [sym_kMessage];
   ACTIONS 11647 [sym_kDeprecated]; ACTIONS 1016 [sym_kExperimental; sym_kPlatform;
   sym_kUnimplemented; sym_kCvar]; ACTIONS 11649 [sym_kExport]; ACTIONS 1016 [sym_kFar;
   sym_kNear; sym_kSafecall; sym_kAssembler; sym_kNostackframe; sym_kInterrupt; sym_kNoreturn;
   sym_kIocheck; sym_kLocal; sym_kHardfloat; sym_kSoftfloat; sym_kMs_abi_default;
   sym_kMs_abi_cdecl; sym_kSaveregisters; sym_kSysv_abi_default; sym_kSysv_abi_cdecl;
   sym_kVectorcall; sym_kVarargs; sym_kWinapi]; ACTIONS 11651 [sym_kAlias];
   ACTIONS 5567 [sym_kAsm; sym_kBegin; sym_kClass; sym_kConst; sym_kConstructor; sym_kDestructor;
   sym_kExports; sym_kFunction]; ACTIONS 1016 [sym_kInline]; ACTIONS 5567 [sym_kLabel;
   sym_kProcedure; sym_kResourcestring; sym_kThreadvar; sym_kType; sym_kUses; sym_kVar]].

(** State 2375. *)
Definition ts_parse_table_2375 : parse_row :=
  [STATE 2887 [sym__ppIf]; STATE 2734 [sym__procAttributeNoExt];
   STATE 2735 [sym__procAttributesPp]; STATE 15193 [sym_procAttribute];
   STATE 2400 [aux_sym__declProc_repeat1]; ACTIONS 14318 [anon_sym_LBRACK];
   ACTIONS 5439 [aux_sym_ppUsesBlock_token1]; ACTIONS 3 [sym__space];
   ACTIONS 5 [sym_ppDirective]; ACTIONS 3 [sym_comment]; ACTIONS 1016 [sym_kDefault;
   sym_kNodefault]; ACTIONS 11641 [sym_kDispId]; ACTIONS 5432 [sym_kGeneric; sym_kOperator];
   ACTIONS 11643 [sym_kPublic]; ACTIONS 1016 [sym_kStatic; sym_kVirtual; sym_kAbstract;
   sym_kDynamic; sym_kOverride; sym_kOverload; sym_kReintroduce; sym_kStdcall; sym_kCdecl;
   sym_kCppdecl; sym_kPascal; sym_kRegister; sym_kMwpascal]; ACTIONS 11645 [sym_kMessage];
   ACTIONS 11647 [sym_kDeprecated]; ACTIONS 1016 [sym_kExperimental; sym_kPlatform;
   sym_kUnimplemented; sym_kCvar]; ACTIONS 11649 [sym_kExport]; ACTIONS 1016 [sym_kFar;
   sym_kNear; sym_kSafecall; sym_kAssembler; sym_kNostackframe; sym_kInterrupt; sym_kNoreturn;
   sym_kIocheck; sym_kLocal; sym_kHardfloat; sym_kSoftfloat; sym_kMs_abi_default;
   sym_kMs_abi_cdecl; sym_kSaveregisters; sym_kSysv_abi_default; sym_kSysv_abi_cdecl;
   sym_kVectorcall; sym_kVarargs; sym_kWinapi]; ACTIONS 11651 [sym_kAlias];
   ACTIONS 5432 [sym_kAsm; sym_kBegin; sym_kClass; sym_kConst; sym_kConstructor; sym_kDestructor;
   sym_kExports; sym_kFunction]; ACTIONS 1016 [sym_kInline]; ACTIONS 5432 [sym_kLabel;
   sym_kProcedure; sym_kResourcestring; sym_kThreadvar; sym_kType; sym_kUses; sym_kVar]].

(** State 2376. *)
Definition ts_parse_table_2376 : parse_row :=
  [STATE 2887 [sym__ppIf]; STATE 2734 [sym__procAttributeNoExt];
   STATE 2735 [sym__procAttributesPp]; STATE 15193 [sym_procAttribute];
   STATE 2417 [aux_sym__declProc_repeat1]; ACTIONS 14321 [anon_sym_LBRACK];
   ACTIONS 2975 [aux_sym_ppUsesBlock_token1]; ACTIONS 3 [sym__space];
   ACTIONS 5 [sym_ppDirective]; ACTIONS 3 [sym_comment]; ACTIONS 1016 [sym_kDefault;
   sym_kNodefault]; ACTIONS 11641 [sym_kDispId]; ACTIONS 2968 [sym_kGeneric; sym_kOperator];
   ACTIONS 11643 [sym_kPublic]; ACTIONS 1016 [sym_kStatic; sym_kVirtual; sym_kAbstract;
   sym_kDynamic; sym_kOverride; sym_kOverload; sym_kReintroduce; sym_kStdcall; sym_kCdecl;
   sym_kCppdecl; sym_kPascal; sym_kRegister; sym_kMwpascal]; ACTIONS 11645 [sym_kMessage];
   ACTIONS 11647 [sym_kDeprecated]; ACTIONS 1016 [sym_kExperimental; sym_kPlatform;
   sym_kUnimplemented; sym_kCvar]; ACTIONS 11649 [sym_kExport]; ACTIONS 1016 [sym_kFar;
   sym_kNear; sym_kSafecall; sym_kAssembler; sym_kNostackframe; sym_kInterrupt; sym_kNoreturn;
   sym_kIocheck; sym_kLocal; sym_kHardfloat; sym_kSoftfloat; sym_kMs_abi_default;
   sym_kMs_abi_cdecl; sym_kSaveregisters; sym_kSysv_abi_default; sym_kSysv_abi_cdecl;
   sym_kVectorcall; sym_kVarargs; sym_kWinapi]; ACTIONS 11651 [sym_kAlias];
   ACTIONS 2968 [sym_kAsm; sym_kBegin; sym_kClass; sym_kConst; sym_kConstructor; sym_kDestructor;
   sym_kExports; sym_kFunction]; ACTIONS 1016 [sym_kInline]; ACTIONS 2968 [sym_kLabel;
   sym_kProcedure; sym_kResourcestring; sym_kThreadvar; sym_kType; sym_kUses; sym_kVar]].

(** State 2377. *)
Definition ts_parse_table_2377 : parse_row :=
  [STATE 2887 [sym__ppIf]; STATE 2734 [sym__procAttributeNoExt];
   STATE 2735 [sym__procAttributesPp]; STATE 15193 [sym_procAttribute];
   STATE 2385 [aux_sym__declProc_repeat1]; ACTIONS 14324 [anon_sym_LBRACK];
   ACTIONS 3008 [aux_sym_ppUsesBlock_token1]; ACTIONS 3 [sym__space];
   ACTIONS 5 [sym_ppDirective]; ACTIONS 3 [sym_comment]; ACTIONS 1016 [sym_kDefault;
   sym_kNodefault]; ACTIONS 11641 [sym_kDispId]; ACTIONS 3001 [sym_kGeneric; sym_kOperator];
   ACTIONS 11643 [sym_kPublic]; ACTIONS 1016 [sym_kStatic; sym_kVirtual; sym_kAbstract;
   sym_kDynamic; sym_kOverride; sym_kOverload; sym_kReintroduce; sym_kStdcall; sym_kCdecl;
   sym_kCppdecl; sym_kPascal; sym_kRegister; sym_kMwpascal]; ACTIONS 11645 [sym_kMessage];
   ACTIONS 11647 [sym_kDeprecated]; ACTIONS 1016 [sym_kExperimental; sym_kPlatform;
   sym_kUnimplemented; sym_kCvar]; ACTIONS 11649 [sym_kExport]; ACTIONS 1016 [sym_kFar;
   sym_kNear; sym_kSafecall; sym_kAssembler; sym_kNostackframe; sym_kInterrupt; sym_kNoreturn;
   sym_kIocheck; sym_kLocal; sym_kHardfloat; sym_kSoftfloat; sym_kMs_abi_default;
   sym_kMs_abi_cdecl; sym_kSaveregisters; sym_kSysv_abi_default; sym_kSysv_abi_cdecl;
   sym_kVectorcall; sym_kVarargs; sym_kWinapi]; ACTIONS 11651 [sym_kAlias];
   ACTIONS 3001 [sym_kAsm; sym_kBegin; sym_kClass; sym_kConst; sym_kConstructor; sym_kDestructor;
   sym_kExports; sym_kFunction]; ACTIONS 1016 [sym_kInline]; ACTIONS 3001 [sym_kLabel;
   sym_kProcedure; sym_kResourcestring; sym_kThreadvar; sym_kType; sym_kUses; sym_kVar]].

(** State 2378. *)
Definition ts_parse_table_2378 : parse_row :=
  [STATE 2887 [sym__ppIf]; STATE 2734 [sym__procAttributeNoExt];
   STATE 2735 [sym__procAttributesPp]; STATE 15193 [sym_procAttribute];
   STATE 2386 [aux_sym__declProc_repeat1]; ACTIONS 14327 [anon_sym_LBRACK];
   ACTIONS 3041 [aux_sym_ppUsesBlock_token1]; ACTIONS 3 [sym__space];
   ACTIONS 5 [sym_ppDirective]; ACTIONS 3 [sym_comment]; ACTIONS 1016 [sym_kDefault;
   sym_kNodefault]; ACTIONS 11641 [sym_kDispId]; ACTIONS 3034 [sym_kGeneric; sym_kOperator];
   ACTIONS 11643 [sym_kPublic]; ACTIONS 1016 [sym_kStatic; sym_kVirtual; sym_kAbstract;
   sym_kDynamic; sym_kOverride; sym_kOverload; sym_kReintroduce; sym_kStdcall; sym_kCdecl;
   sym_kCppdecl; sym_kPascal; sym_kRegister; sym_kMwpascal]; ACTIONS 11645 [sym_kMessage];
   ACTIONS 11647 [sym_kDeprecated]; ACTIONS 1016 [sym_kExperimental; sym_kPlatform;
   sym_kUnimplemented; sym_kCvar]; ACTIONS 11649 [sym_kExport]; ACTIONS 1016 [sym_kFar;
   sym_kNear; sym_kSafecall; sym_kAssembler; sym_kNostackframe; sym_kInterrupt; sym_kNoreturn;
   sym_kIocheck; sym_kLocal; sym_kHardfloat; sym_kSoftfloat; sym_kMs_abi_default;
   sym_kMs_abi_cdecl; sym_kSaveregisters; sym_kSysv_abi_default; sym_kSysv_abi_cdecl;
   sym_kVectorcall; sym_kVarargs; sym_kWinapi]; ACTIONS 11651 [sym_kAlias];
   ACTIONS 3034 [sym_kAsm; sym_kBegin; sym_kClass; sym_kConst; sym_kConstructor; sym_kDestructor;
   sym_kExports; sym_kFunction]; ACTIONS 1016 [sym_kInline]; ACTIONS 3034 [sym_kLabel;
   sym_kProcedure; sym_kResourcestring; sym_kThreadvar; sym_kType; sym_kUses; sym_kVar]].

(** State 2379. *)
Definition ts_parse_table_2379 : parse_row :=
  [STATE 2887 [sym__ppIf]; STATE 2734 [sym__procAttributeNoExt];
   STATE 2735 [sym__procAttributesPp]; STATE 15193 [sym_procAttribute];
   STATE 2417 [aux_sym__declProc_repeat1]; ACTIONS 14330 [anon_sym_LBRACK];
   ACTIONS 3074 [aux_sym_ppUsesBlock_token1]; ACTIONS 3 [sym__space];
   ACTIONS 5 [sym_ppDirective]; ACTIONS 3 [sym_comment]; ACTIONS 1016 [sym_kDefault;
   sym_kNodefault]; ACTIONS 11641 [sym_kDispId]; ACTIONS 3067 [sym_kGeneric; sym_kOperator];
   ACTIONS 11643 [sym_kPublic]; ACTIONS 1016 [sym_kStatic; sym_kVirtual; sym_kAbstract;
   sym_kDynamic; sym_kOverride; sym_kOverload; sym_kReintroduce; sym_kStdcall; sym_kCdecl;
   sym_kCppdecl; sym_kPascal; sym_kRegister; sym_kMwpascal]; ACTIONS 11645 [sym_kMessage];
   ACTIONS 11647 [sym_kDeprecated]; ACTIONS 1016 [sym_kExperimental; sym_kPlatform;
   sym_kUnimplemented; sym_kCvar]; ACTIONS 11649 [sym_kExport]; ACTIONS 1016 [sym_kFar;
   sym_kNear; sym_kSafecall; sym_kAssembler; sym_kNostackframe; sym_kInterrupt; sym_kNoreturn;
   sym_kIocheck; sym_kLocal; sym_kHardfloat; sym_kSoftfloat; sym_kMs_abi_default;
   sym_kMs_abi_cdecl; sym_kSaveregisters; sym_kSysv_abi_default; sym_kSysv_abi_cdecl;
   sym_kVectorcall; sym_kVarargs; sym_kWinapi]; ACTIONS 11651 [sym_kAlias];
   ACTIONS 3067 [sym_kAsm; sym_kBegin; sym_kClass; sym_kConst; sym_kConstructor; sym_kDestructor;
   sym_kExports; sym_kFunction]; ACTIONS 1016 [sym_kInline]; ACTIONS 3067 [sym_kLabel;
   sym_kProcedure; sym_kResourcestring; sym_kThreadvar; sym_kType; sym_kUses; sym_kVar]].

(** State 2380. *)
Definition ts_parse_table_2380 : parse_row :=
  [STATE 2887 [sym__ppIf]; STATE 2734 [sym__procAttributeNoExt];
   STATE 2735 [sym__procAttributesPp]; STATE 15193 [sym_procAttribute];
   STATE 2417 [aux_sym__declProc_repeat1]; ACTIONS 14333 [anon_sym_LBRACK];
   ACTIONS 3107 [aux_sym_ppUsesBlock_token1]; ACTIONS 3 [sym__space];
   ACTIONS 5 [sym_ppDirective]; ACTIONS 3 [sym_comment]; ACTIONS 1016 [sym_kDefault;
   sym_kNodefault]; ACTIONS 11641 [sym_kDispId]; ACTIONS 3100 [sym_kGeneric; sym_kOperator];
   ACTIONS 11643 [sym_kPublic]; ACTIONS 1016 [sym_kStatic; sym_kVirtual; sym_kAbstract;
   sym_kDynamic; sym_kOverride; sym_kOverload; sym_kReintroduce; sym_kStdcall; sym_kCdecl;
   sym_kCppdecl; sym_kPascal; sym_kRegister; sym_kMwpascal]; ACTIONS 11645 [sym_kMessage];
   ACTIONS 11647 [sym_kDeprecated]; ACTIONS 1016 [sym_kExperimental; sym_kPlatform;
   sym_kUnimplemented; sym_kCvar]; ACTIONS 11649 [sym_kExport]; ACTIONS 1016 [sym_kFar;
   sym_kNear; sym_kSafecall; sym_kAssembler; sym_kNostackframe; sym_kInterrupt; sym_kNoreturn;
   sym_kIocheck; sym_kLocal; sym_kHardfloat; sym_kSoftfloat; sym_kMs_abi_default;
   sym_kMs_abi_cdecl; sym_kSaveregisters; sym_kSysv_abi_default; sym_kSysv_abi_cdecl;
   sym_kVectorcall; sym_kVarargs; sym_kWinapi]; ACTIONS 11651 [sym_kAlias];
   ACTIONS 3100 [sym_kAsm; sym_kBegin; sym_kClass; sym_kConst; sym_kConstructor; sym_kDestructor;
   sym_kExports; sym_kFunction]; ACTIONS 1016 [sym_kInline]; ACTIONS 3100 [sym_kLabel;
   sym_kProcedure; sym_kResourcestring; sym_kThreadvar; sym_kType; sym_kUses; sym_kVar]].

(** State 2381. *)
Definition ts_parse_table_2381 : parse_row :=
  [STATE 2887 [sym__ppIf]; STATE 2734 [sym__procAttributeNoExt];
   STATE 2735 [sym__procAttributesPp]; STATE 15193 [sym_procAttribute];
   STATE 2417 [aux_sym__declProc_repeat1]; ACTIONS 14336 [anon_sym_LBRACK];
   ACTIONS 3140 [aux_sym_ppUsesBlock_token1]; ACTIONS 3 [sym__space];
   ACTIONS 5 [sym_ppDirective]; ACTIONS 3 [sym_comment]; ACTIONS 1016 [sym_kDefault;
   sym_kNodefault]; ACTIONS 11641 [sym_kDispId]; ACTIONS 3133 [sym_kGeneric; sym_kOperator];
   ACTIONS 11643 [sym_kPublic]; ACTIONS 1016 [sym_kStatic; sym_kVirtual; sym_kAbstract;
   sym_kDynamic; sym_kOverride; sym_kOverload; sym_kReintroduce; sym_kStdcall; sym_kCdecl;
   sym_kCppdecl; sym_kPascal; sym_kRegister; sym_kMwpascal]; ACTIONS 11645 [sym_kMessage];
   ACTIONS 11647 [sym_kDeprecated]; ACTIONS 1016 [sym_kExperimental; sym_kPlatform;
   sym_kUnimplemented; sym_kCvar]; ACTIONS 11649 [sym_kExport]; ACTIONS 1016 [sym_kFar;
   sym_kNear; sym_kSafecall; sym_kAssembler; sym_kNostackframe; sym_kInterrupt; sym_kNoreturn;
   sym_kIocheck; sym_kLocal; sym_kHardfloat; sym_kSoftfloat; sym_kMs_abi_default;
   sym_kMs_abi_cdecl; sym_kSaveregisters; sym_kSysv_abi_default; sym_kSysv_abi_cdecl;
   sym_kVectorcall; sym_kVarargs; sym_kWinapi]; ACTIONS 11651 [sym_kAlias];
   ACTIONS 3133 [sym_kAsm; sym_kBegin; sym_kClass; sym_kConst; sym_kConstructor; sym_kDestructor;
   sym_kExports; sym_kFunction]; ACTIONS 1016 [sym_kInline]; ACTIONS 3133 [sym_kLabel;
   sym_kProcedure; sym_kResourcestring; sym_kThreadvar; sym_kType; sym_kUses; sym_kVar]].

(** State 2382. *)
Definition ts_parse_table_2382 : parse_row :=
  [STATE 2887 [sym__ppIf]; STATE 2734 [sym__procAttributeNoExt];
   STATE 2735 [sym__procAttributesPp]; STATE 15193 [sym_procAttribute];
   STATE 2388 [aux_sym__declProc_repeat1]; ACTIONS 14339 [anon_sym_LBRACK];
   ACTIONS 2211 [aux_sym_ppUsesBlock_token1]; ACTIONS 3 [sym__space];
   ACTIONS 5 [sym_ppDirective]; ACTIONS 3 [sym_comment]; ACTIONS 1016 [sym_kDefault;
   sym_kNodefault]; ACTIONS 11641 [sym_kDispId]; ACTIONS 2204 [sym_kGeneric; sym_kOperator];
   ACTIONS 11643 [sym_kPublic]; ACTIONS 1016 [sym_kStatic; sym_kVirtual; sym_kAbstract;
   sym_kDynamic; sym_kOverride; sym_kOverload; sym_kReintroduce; sym_kStdcall; sym_kCdecl;
   sym_kCppdecl; sym_kPascal; sym_kRegister; sym_kMwpascal]; ACTIONS 11645 [sym_kMessage];
   ACTIONS 11647 [sym_kDeprecated]; ACTIONS 1016 [sym_kExperimental; sym_kPlatform;
   sym_kUnimplemented; sym_kCvar]; ACTIONS 11649 [sym_kExport]; ACTIONS 1016 [sym_kFar;
   sym_kNear; sym_kSafecall; sym_kAssembler; sym_kNostackframe; sym_kInterrupt; sym_kNoreturn;
   sym_kIocheck; sym_kLocal; sym_kHardfloat; sym_kSoftfloat; sym_kMs_abi_default;
   sym_kMs_abi_cdecl; sym_kSaveregisters; sym_kSysv_abi_default; sym_kSysv_abi_cdecl;
   sym_kVectorcall; sym_kVarargs; sym_kWinapi]; ACTIONS 11651 [sym_kAlias];
   ACTIONS 2204 [sym_kAsm; sym_kBegin; sym_kClass; sym_kConst; sym_kConstructor; sym_kDestructor;
   sym_kExports; sym_kFunction]; ACTIONS 1016 [sym_kInline]; ACTIONS 2204 [sym_kLabel;
   sym_kProcedure; sym_kResourcestring; sym_kThreadvar; sym_kType; sym_kUses; sym_kVar]].

(** State 2383. *)
Definition ts_parse_table_2383 : parse_row :=
  [STATE 2887 [sym__ppIf]; STATE 2734 [sym__procAttributeNoExt];
   STATE 2735 [sym__procAttributesPp]; STATE 15193 [sym_procAttribute];
   STATE 2417 [aux_sym__declProc_repeat1]; ACTIONS 14342 [anon_sym_LBRACK];
   ACTIONS 992 [aux_sym_ppUsesBlock_token1]; ACTIONS 3 [sym__space]; ACTIONS 5 [sym_ppDirective];
   ACTIONS 3 [sym_comment]; ACTIONS 1016 [sym_kDefault; sym_kNodefault];
   ACTIONS 11641 [sym_kDispId]; ACTIONS 985 [sym_kGeneric; sym_kOperator];
   ACTIONS 11643 [sym_kPublic]; ACTIONS 1016 [sym_kStatic; sym_kVirtual; sym_kAbstract;
   sym_kDynamic; sym_kOverride; sym_kOverload; sym_kReintroduce; sym_kStdcall; sym_kCdecl;
   sym_kCppdecl; sym_kPascal; sym_kRegister; sym_kMwpascal]; ACTIONS 11645 [sym_kMessage];
   ACTIONS 11647 [sym_kDeprecated]; ACTIONS 1016 [sym_kExperimental; sym_kPlatform;
   sym_kUnimplemented; sym_kCvar]; ACTIONS 11649 [sym_kExport]; ACTIONS 1016 [sym_kFar;
   sym_kNear; sym_kSafecall; sym_kAssembler; sym_kNostackframe; sym_kInterrupt; sym_kNoreturn;
   sym_kIocheck; sym_kLocal; sym_kHardfloat; sym_kSoftfloat; sym_kMs_abi_default;
   sym_kMs_abi_cdecl; sym_kSaveregisters; sym_kSysv_abi_default; sym_kSysv_abi_cdecl;
   sym_kVectorcall; sym_kVarargs; sym_kWinapi]; ACTIONS 11651 [sym_kAlias];
   ACTIONS 985 [sym_kAsm; sym_kBegin; sym_kClass; sym_kConst; sym_kConstructor; sym_kDestructor;
   sym_kExports; sym_kFunction]; ACTIONS 1016 [sym_kInline]; ACTIONS 985 [sym_kLabel;
   sym_kProcedure; sym_kResourcestring; sym_kThreadvar; sym_kType; sym_kUses; sym_kVar]].

(** State 2384. *)
Definition ts_parse_table_2384 : parse_row :=
  [STATE 2887 [sym__ppIf]; STATE 2734 [sym__procAttributeNoExt];
   STATE 2735 [sym__procAttributesPp]; STATE 15193 [sym_procAttribute];
   STATE 2417 [aux_sym__declProc_repeat1]; ACTIONS 14345 [anon_sym_LBRACK];
   ACTIONS 5473 [aux_sym_ppUsesBlock_token1]; ACTIONS 3 [sym__space];
   ACTIONS 5 [sym_ppDirective]; ACTIONS 3 [sym_comment]; ACTIONS 1016 [sym_kDefault;
   sym_kNodefault]; ACTIONS 11641 [sym_kDispId]; ACTIONS 5466 [sym_kGeneric; sym_kOperator];
   ACTIONS 11643 [sym_kPublic]; ACTIONS 1016 [sym_kStatic; sym_kVirtual; sym_kAbstract;
   sym_kDynamic; sym_kOverride; sym_kOverload; sym_kReintroduce; sym_kStdcall; sym_kCdecl;
   sym_kCppdecl; sym_kPascal; sym_kRegister; sym_kMwpascal]; ACTIONS 11645 [sym_kMessage];
   ACTIONS 11647 [sym_kDeprecated]; ACTIONS 1016 [sym_kExperimental; sym_kPlatform;
   sym_kUnimplemented; sym_kCvar]; ACTIONS 11649 [sym_kExport]; ACTIONS 1016 [sym_kFar;
   sym_kNear; sym_kSafecall; sym_kAssembler; sym_kNostackframe; sym_kInterrupt; sym_kNoreturn;
   sym_kIocheck; sym_kLocal; sym_kHardfloat; sym_kSoftfloat; sym_kMs_abi_default;
   sym_kMs_abi_cdecl; sym_kSaveregisters; sym_kSysv_abi_default; sym_kSysv_abi_cdecl;
   sym_kVectorcall; sym_kVarargs; sym_kWinapi]; ACTIONS 11651 [sym_kAlias];
   ACTIONS 5466 [sym_kAsm; sym_kBegin; sym_kClass; sym_kConst; sym_kConstructor; sym_kDestructor;
   sym_kExports; sym_kFunction]; ACTIONS 1016 [sym_kInline]; ACTIONS 5466 [sym_kLabel;
   sym_kProcedure; sym_kResourcestring; sym_kThreadvar; sym_kType; sym_kUses; sym_kVar]].

(** State 2385. *)
Definition ts_parse_table_2385 : parse_row :=
  [STATE 2887 [sym__ppIf]; STATE 2734 [sym__procAttributeNoExt];
   STATE 2735 [sym__procAttributesPp]; STATE 15193 [sym_procAttribute];
   STATE 2417 [aux_sym__declProc_repeat1]; ACTIONS 14348 [anon_sym_LBRACK];
   ACTIONS 1025 [aux_sym_ppUsesBlock_token1]; ACTIONS 3 [sym__space];
   ACTIONS 5 [sym_ppDirective]; ACTIONS 3 [sym_comment]; ACTIONS 1016 [sym_kDefault;
   sym_kNodefault]; ACTIONS 11641 [sym_kDispId]; ACTIONS 1018 [sym_kGeneric; sym_kOperator];
   ACTIONS 11643 [sym_kPublic]; ACTIONS 1016 [sym_kStatic; sym_kVirtual; sym_kAbstract;
   sym_kDynamic; sym_kOverride; sym_kOverload; sym_kReintroduce; sym_kStdcall; sym_kCdecl;
   sym_kCppdecl; sym_kPascal; sym_kRegister; sym_kMwpascal]; ACTIONS 11645 [sym_kMessage];
   ACTIONS 11647 [sym_kDeprecated]; ACTIONS 1016 [sym_kExperimental; sym_kPlatform;
   sym_kUnimplemented; sym_kCvar]; ACTIONS 11649 [sym_kExport]; ACTIONS 1016 [sym_kFar;
   sym_kNear; sym_kSafecall; sym_kAssembler; sym_kNostackframe; sym_kInterrupt; sym_kNoreturn;
   sym_kIocheck; sym_kLocal; sym_kHardfloat; sym_kSoftfloat; sym_kMs_abi_default;
   sym_kMs_abi_cdecl; sym_kSaveregisters; sym_kSysv_abi_default; sym_kSysv_abi_cdecl;
   sym_kVectorcall; sym_kVarargs; sym_kWinapi]; ACTIONS 11651 [sym_kAlias];
   ACTIONS 1018 [sym_kAsm; sym_kBegin; sym_kClass; sym_kConst; sym_kConstructor; sym_kDestructor;
   sym_kExports; sym_kFunction]; ACTIONS 1016 [sym_kInline]; ACTIONS 1018 [sym_kLabel;
   sym_kProcedure; sym_kResourcestring; sym_kThreadvar; sym_kType; sym_kUses; sym_kVar]].

(** State 2386. *)
Definition ts_parse_table_2386 : parse_row :=
  [STATE 2887 [sym__ppIf]; STATE 2734 [sym__procAttributeNoExt];
   STATE 2735 [sym__procAttributesPp]; STATE 15193 [sym_procAttribute];
   STATE 2417 [aux_sym__declProc_repeat1]; ACTIONS 14351 [anon_sym_LBRACK];
   ACTIONS 1056 [aux_sym_ppUsesBlock_token1]; ACTIONS 3 [sym__space];
   ACTIONS 5 [sym_ppDirective]; ACTIONS 3 [sym_comment]; ACTIONS 1016 [sym_kDefault;
   sym_kNodefault]; ACTIONS 11641 [sym_kDispId]; ACTIONS 1049 [sym_kGeneric; sym_kOperator];
   ACTIONS 11643 [sym_kPublic]; ACTIONS 1016 [sym_kStatic; sym_kVirtual; sym_kAbstract;
   sym_kDynamic; sym_kOverride; sym_kOverload; sym_kReintroduce; sym_kStdcall; sym_kCdecl;
   sym_kCppdecl; sym_kPascal; sym_kRegister; sym_kMwpascal]; ACTIONS 11645 [sym_kMessage];
   ACTIONS 11647 [sym_kDeprecated]; ACTIONS 1016 [sym_kExperimental; sym_kPlatform;
   sym_kUnimplemented; sym_kCvar]; ACTIONS 11649 [sym_kExport]; ACTIONS 1016 [sym_kFar;
   sym_kNear; sym_kSafecall; sym_kAssembler; sym_kNostackframe; sym_kInterrupt; sym_kNoreturn;
   sym_kIocheck; sym_kLocal; sym_kHardfloat; sym_kSoftfloat; sym_kMs_abi_default;
   sym_kMs_abi_cdecl; sym_kSaveregisters; sym_kSysv_abi_default; sym_kSysv_abi_cdecl;
   sym_kVectorcall; sym_kVarargs; sym_kWinapi]; ACTIONS 11651 [sym_kAlias];
   ACTIONS 1049 [sym_kAsm; sym_kBegin; sym_kClass; sym_kConst; sym_kConstructor; sym_kDestructor;
   sym_kExports; sym_kFunction]; ACTIONS 1016 [sym_kInline]; ACTIONS 1049 [sym_kLabel;
   sym_kProcedure; sym_kResourcestring; sym_kThreadvar; sym_kType; sym_kUses; sym_kVar]].

(** State 2387. *)
Definition ts_parse_table_2387 : parse_row :=
  [STATE 2887 [sym__ppIf]; STATE 2734 [sym__procAttributeNoExt];
   STATE 2735 [sym__procAttributesPp]; STATE 15193 [sym_procAttribute];
   STATE 2397 [aux_sym__declProc_repeat1]; ACTIONS 14354 [anon_sym_LBRACK];
   ACTIONS 1087 [aux_sym_ppUsesBlock_token1]; ACTIONS 3 [sym__space];
   ACTIONS 5 [sym_ppDirective]; ACTIONS 3 [sym_comment]; ACTIONS 1016 [sym_kDefault;
   sym_kNodefault]; ACTIONS 11641 [sym_kDispId]; ACTIONS 1080 [sym_kGeneric; sym_kOperator];
   ACTIONS 11643 [sym_kPublic]; ACTIONS 1016 [sym_kStatic; sym_kVirtual; sym_kAbstract;
   sym_kDynamic; sym_kOverride; sym_kOverload; sym_kReintroduce; sym_kStdcall; sym_kCdecl;
   sym_kCppdecl; sym_kPascal; sym_kRegister; sym_kMwpascal]; ACTIONS 11645 [sym_kMessage];
   ACTIONS 11647 [sym_kDeprecated]; ACTIONS 1016 [sym_kExperimental; sym_kPlatform;
   sym_kUnimplemented; sym_kCvar]; ACTIONS 11649 [sym_kExport]; ACTIONS 1016 [sym_kFar;
   sym_kNear; sym_kSafecall; sym_kAssembler; sym_kNostackframe; sym_kInterrupt; sym_kNoreturn;
   sym_kIocheck; sym_kLocal; sym_kHardfloat; sym_kSoftfloat; sym_kMs_abi_default;
   sym_kMs_abi_cdecl; sym_kSaveregisters; sym_kSysv_abi_default; sym_kSysv_abi_cdecl;
   sym_kVectorcall; sym_kVarargs; sym_kWinapi]; ACTIONS 11651 [sym_kAlias];
   ACTIONS 1080 [sym_kAsm; sym_kBegin; sym_kClass; sym_kConst; sym_kConstructor; sym_kDestructor;
   sym_kExports; sym_kFunction]; ACTIONS 1016 [sym_kInline]; ACTIONS 1080 [sym_kLabel;
   sym_kProcedure; sym_kResourcestring; sym_kThreadvar; sym_kType; sym_kUses; sym_kVar]].

(** State 2388. *)
Definition ts_parse_table_2388 : parse_row :=
  [STATE 2887 [sym__ppIf]; STATE 2734 [sym__procAttributeNoExt];
   STATE 2735 [sym__procAttributesPp]; STATE 15193 [sym_procAttribute];
   STATE 2417 [aux_sym__declProc_repeat1]; ACTIONS 14357 [anon_sym_LBRACK];
   ACTIONS 1118 [aux_sym_ppUsesBlock_token1]; ACTIONS 3 [sym__space];
   ACTIONS 5 [sym_ppDirective]; ACTIONS 3 [sym_comment]; ACTIONS 1016 [sym_kDefault;
   sym_kNodefault]; ACTIONS 11641 [sym_kDispId]; ACTIONS 1111 [sym_kGeneric; sym_kOperator];
   ACTIONS 11643 [sym_kPublic]; ACTIONS 1016 [sym_kStatic; sym_kVirtual; sym_kAbstract;
   sym_kDynamic; sym_kOverride; sym_kOverload; sym_kReintroduce; sym_kStdcall; sym_kCdecl;
   sym_kCppdecl; sym_kPascal; sym_kRegister; sym_kMwpascal]; ACTIONS 11645 [sym_kMessage];
   ACTIONS 11647 [sym_kDeprecated]; ACTIONS 1016 [sym_kExperimental; sym_kPlatform;
   sym_kUnimplemented; sym_kCvar]; ACTIONS 11649 [sym_kExport]; ACTIONS 1016 [sym_kFar;
   sym_kNear; sym_kSafecall; sym_kAssembler; sym_kNostackframe; sym_kInterrupt; sym_kNoreturn;
   sym_kIocheck; sym_kLocal; sym_kHardfloat; sym_kSoftfloat; sym_kMs_abi_default;
   sym_kMs_abi_cdecl; sym_kSaveregisters; sym_kSysv_abi_default; sym_kSysv_abi_cdecl;
   sym_kVectorcall; sym_kVarargs; sym_kWinapi]; ACTIONS 11651 [sym_kAlias];
   ACTIONS 1111 [sym_kAsm; sym_kBegin; sym_kClass; sym_kConst; sym_kConstructor; sym_kDestructor;
   sym_kExports; sym_kFunction]; ACTIONS 1016 [sym_kInline]; ACTIONS 1111 [sym_kLabel;
   sym_kProcedure; sym_kResourcestring; sym_kThreadvar; sym_kType; sym_kUses; sym_kVar]].

(** State 2389. *)
Definition ts_parse_table_2389 : parse_row :=
  [STATE 2887 [sym__ppIf]; STATE 2734 [sym__procAttributeNoExt];
   STATE 2735 [sym__procAttributesPp]; STATE 15193 [sym_procAttribute];
   STATE 2402 [aux_sym__declProc_repeat1]; ACTIONS 14360 [anon_sym_LBRACK];
   ACTIONS 5664 [aux_sym_ppUsesBlock_token1]; ACTIONS 3 [sym__space];
   ACTIONS 5 [sym_ppDirective]; ACTIONS 3 [sym_comment]; ACTIONS 1016 [sym_kDefault;
   sym_kNodefault]; ACTIONS 11641 [sym_kDispId]; ACTIONS 5657 [sym_kGeneric; sym_kOperator];
   ACTIONS 11643 [sym_kPublic]; ACTIONS 1016 [sym_kStatic; sym_kVirtual; sym_kAbstract;
   sym_kDynamic; sym_kOverride; sym_kOverload; sym_kReintroduce; sym_kStdcall; sym_kCdecl;
   sym_kCppdecl; sym_kPascal; sym_kRegister; sym_kMwpascal]; ACTIONS 11645 [sym_kMessage];
   ACTIONS 11647 [sym_kDeprecated]; ACTIONS 1016 [sym_kExperimental; sym_kPlatform;
   sym_kUnimplemented; sym_kCvar]; ACTIONS 11649 [sym_kExport]; ACTIONS 1016 [sym_kFar;
   sym_kNear; sym_kSafecall; sym_kAssembler; sym_kNostackframe; sym_kInterrupt; sym_kNoreturn;
   sym_kIocheck; sym_kLocal; sym_kHardfloat; sym_kSoftfloat; sym_kMs_abi_default;
   sym_kMs_abi_cdecl; sym_kSaveregisters; sym_kSysv_abi_default; sym_kSysv_abi_cdecl;
   sym_kVectorcall; sym_kVarargs; sym_kWinapi]; ACTIONS 11651 [sym_kAlias];
   ACTIONS 5657 [sym_kAsm; sym_kBegin; sym_kClass; sym_kConst; sym_kConstructor; sym_kDestructor;
   sym_kExports; sym_kFunction]; ACTIONS 1016 [sym_kInline]; ACTIONS 5657 [sym_kLabel;
   sym_kProcedure; sym_kResourcestring; sym_kThreadvar; sym_kType; sym_kUses; sym_kVar]].

(** State 2390. *)
Definition ts_parse_table_2390 : parse_row :=
  [STATE 2887 [sym__ppIf]; STATE 2734 [sym__procAttributeNoExt];
   STATE 2735 [sym__procAttributesPp]; STATE 15193 [sym_procAttribute];
   STATE 2417 [aux_sym__declProc_repeat1]; ACTIONS 14363 [anon_sym_LBRACK];
   ACTIONS 5698 [aux_sym_ppUsesBlock_token1]; ACTIONS 3 [sym__space];
   ACTIONS 5 [sym_ppDirective]; ACTIONS 3 [sym_comment]; ACTIONS 1016 [sym_kDefault;
   sym_kNodefault]; ACTIONS 11641 [sym_kDispId]; ACTIONS 5691 [sym_kGeneric; sym_kOperator];
   ACTIONS 11643 [sym_kPublic]; ACTIONS 1016 [sym_kStatic; sym_kVirtual; sym_kAbstract;
   sym_kDynamic; sym_kOverride; sym_kOverload; sym_kReintroduce; sym_kStdcall; sym_kCdecl;
   sym_kCppdecl; sym_kPascal; sym_kRegister; sym_kMwpascal]; ACTIONS 11645 [sym_kMessage];
   ACTIONS 11647 [sym_kDeprecated]; ACTIONS 1016 [sym_kExperimental; sym_kPlatform;
   sym_kUnimplemented; sym_kCvar]; ACTIONS 11649 [sym_kExport]; ACTIONS 1016 [sym_kFar;
   sym_kNear; sym_kSafecall; sym_kAssembler; sym_kNostackframe; sym_kInterrupt; sym_kNoreturn;
   sym_kIocheck; sym_kLocal; sym_kHardfloat; sym_kSoftfloat; sym_kMs_abi_default;
   sym_kMs_abi_cdecl; sym_kSaveregisters; sym_kSysv_abi_default; sym_kSysv_abi_cdecl;
   sym_kVectorcall; sym_kVarargs; sym_kWinapi]; ACTIONS 11651 [sym_kAlias];
   ACTIONS 5691 [sym_kAsm; sym_kBegin; sym_kClass; sym_kConst; sym_kConstructor; sym_kDestructor;
   sym_kExports; sym_kFunction]; ACTIONS 1016 [sym_kInline]; ACTIONS 5691 [sym_kLabel;
   sym_kProcedure; sym_kResourcestring; sym_kThreadvar; sym_kType; sym_kUses; sym_kVar]].

(** State 2391. *)
Definition ts_parse_table_2391 : parse_row :=
  [STATE 2887 [sym__ppIf]; STATE 2734 [sym__procAttributeNoExt];
   STATE 2735 [sym__procAttributesPp]; STATE 15193 [sym_procAttribute];
   STATE 2417 [aux_sym__declProc_repeat1]; ACTIONS 14366 [anon_sym_LBRACK];
   ACTIONS 5757 [aux_sym_ppUsesBlock_token1]; ACTIONS 3 [sym__space];
   ACTIONS 5 [sym_ppDirective]; ACTIONS 3 [sym_comment]; ACTIONS 1016 [sym_kDefault;
   sym_kNodefault]; ACTIONS 11641 [sym_kDispId]; ACTIONS 5750 [sym_kGeneric; sym_kOperator];
   ACTIONS 11643 [sym_kPublic]; ACTIONS 1016 [sym_kStatic; sym_kVirtual; sym_kAbstract;
   sym_kDynamic; sym_kOverride; sym_kOverload; sym_kReintroduce; sym_kStdcall; sym_kCdecl;
   sym_kCppdecl; sym_kPascal; sym_kRegister; sym_kMwpascal]; ACTIONS 11645 [sym_kMessage];
   ACTIONS 11647 [sym_kDeprecated]; ACTIONS 1016 [sym_kExperimental; sym_kPlatform;
   sym_kUnimplemented; sym_kCvar]; ACTIONS 11649 [sym_kExport]; ACTIONS 1016 [sym_kFar;
   sym_kNear; sym_kSafecall; sym_kAssembler; sym_kNostackframe; sym_kInterrupt; sym_kNoreturn;
   sym_kIocheck; sym_kLocal; sym_kHardfloat; sym_kSoftfloat; sym_kMs_abi_default;
   sym_kMs_abi_cdecl; sym_kSaveregisters; sym_kSysv_abi_default; sym_kSysv_abi_cdecl;
   sym_kVectorcall; sym_kVarargs; sym_kWinapi]; ACTIONS 11651 [sym_kAlias];
   ACTIONS 5750 [sym_kAsm; sym_kBegin; sym_kClass; sym_kConst; sym_kConstructor; sym_kDestructor;
   sym_kExports; sym_kFunction]; ACTIONS 1016 [sym_kInline]; ACTIONS 5750 [sym_kLabel;
   sym_kProcedure; sym_kResourcestring; sym_kThreadvar; sym_kType; sym_kUses; sym_kVar]].

(** State 2392. *)
Definition ts_parse_table_2392 : parse_row :=
  [STATE 2887 [sym__ppIf]; STATE 2734 [sym__procAttributeNoExt];
   STATE 2735 [sym__procAttributesPp]; STATE 15193 [sym_procAttribute];
   STATE 2405 [aux_sym__declProc_repeat1]; ACTIONS 14369 [anon_sym_LBRACK];
   ACTIONS 5900 [aux_sym_ppUsesBlock_token1]; ACTIONS 3 [sym__space];
   ACTIONS 5 [sym_ppDirective]; ACTIONS 3 [sym_comment]; ACTIONS 1016 [sym_kDefault;
   sym_kNodefault]; ACTIONS 11641 [sym_kDispId]; ACTIONS 5893 [sym_kGeneric; sym_kOperator];
   ACTIONS 11643 [sym_kPublic]; ACTIONS 1016 [sym_kStatic; sym_kVirtual; sym_kAbstract;
   sym_kDynamic; sym_kOverride; sym_kOverload; sym_kReintroduce; sym_kStdcall; sym_kCdecl;
   sym_kCppdecl; sym_kPascal; sym_kRegister; sym_kMwpascal]; ACTIONS 11645 [sym_kMessage];
   ACTIONS 11647 [sym_kDeprecated]; ACTIONS 1016 [sym_kExperimental; sym_kPlatform;
   sym_kUnimplemented; sym_kCvar]; ACTIONS 11649 [sym_kExport]; ACTIONS 1016 [sym_kFar;
   sym_kNear; sym_kSafecall; sym_kAssembler; sym_kNostackframe; sym_kInterrupt; sym_kNoreturn;
   sym_kIocheck; sym_kLocal; sym_kHardfloat; sym_kSoftfloat; sym_kMs_abi_default;
   sym_kMs_abi_cdecl; sym_kSaveregisters; sym_kSysv_abi_default; sym_kSysv_abi_cdecl;
   sym_kVectorcall; sym_kVarargs; sym_kWinapi]; ACTIONS 11651 [sym_kAlias];
   ACTIONS 5893 [sym_kAsm; sym_kBegin; sym_kClass; sym_kConst; sym_kConstructor; sym_kDestructor;
   sym_kExports; sym_kFunction]; ACTIONS 1016 [sym_kInline]; ACTIONS 5893 [sym_kLabel;
   sym_kProcedure; sym_kResourcestring; sym_kThreadvar; sym_kType; sym_kUses; sym_kVar]].

(** State 2393. *)
Definition ts_parse_table_2393 : parse_row :=
  [STATE 2887 [sym__ppIf]; STATE 2734 [sym__procAttributeNoExt];
   STATE 2735 [sym__procAttributesPp]; STATE 15193 [sym_procAttribute];
   STATE 2436 [aux_sym__declProc_repeat1]; ACTIONS 14372 [anon_sym_LBRACK];
   ACTIONS 7243 [aux_sym_ppUsesBlock_token1]; ACTIONS 3 [sym__space];
   ACTIONS 5 [sym_ppDirective]; ACTIONS 3 [sym_comment]; ACTIONS 1016 [sym_kDefault;
   sym_kNodefault]; ACTIONS 11641 [sym_kDispId]; ACTIONS 7236 [sym_kGeneric; sym_kOperator];
   ACTIONS 11643 [sym_kPublic]; ACTIONS 1016 [sym_kStatic; sym_kVirtual; sym_kAbstract;
   sym_kDynamic; sym_kOverride; sym_kOverload; sym_kReintroduce; sym_kStdcall; sym_kCdecl;
   sym_kCppdecl; sym_kPascal; sym_kRegister; sym_kMwpascal]; ACTIONS 11645 [sym_kMessage];
   ACTIONS 11647 [sym_kDeprecated]; ACTIONS 1016 [sym_kExperimental; sym_kPlatform;
   sym_kUnimplemented; sym_kCvar]; ACTIONS 11649 [sym_kExport]; ACTIONS 1016 [sym_kFar;
   sym_kNear; sym_kSafecall; sym_kAssembler; sym_kNostackframe; sym_kInterrupt; sym_kNoreturn;
   sym_kIocheck; sym_kLocal; sym_kHardfloat; sym_kSoftfloat; sym_kMs_abi_default;
   sym_kMs_abi_cdecl; sym_kSaveregisters; sym_kSysv_abi_default; sym_kSysv_abi_cdecl;
   sym_kVectorcall; sym_kVarargs; sym_kWinapi]; ACTIONS 11651 [sym_kAlias];
   ACTIONS 7236 [sym_kAsm; sym_kBegin; sym_kClass; sym_kConst; sym_kConstructor; sym_kDestructor;
   sym_kExports; sym_kFunction]; ACTIONS 1016 [sym_kInline]; ACTIONS 7236 [sym_kLabel;
   sym_kProcedure; sym_kResourcestring; sym_kThreadvar; sym_kType; sym_kUses; sym_kVar]].

(** State 2394. *)
Definition ts_parse_table_2394 : parse_row :=
  [STATE 2887 [sym__ppIf]; STATE 2734 [sym__procAttributeNoExt];
   STATE 2735 [sym__procAttributesPp]; STATE 15193 [sym_procAttribute];
   STATE 2417 [aux_sym__declProc_repeat1]; ACTIONS 14375 [anon_sym_LBRACK];
   ACTIONS 6653 [aux_sym_ppUsesBlock_token1]; ACTIONS 3 [sym__space];
   ACTIONS 5 [sym_ppDirective]; ACTIONS 3 [sym_comment]; ACTIONS 1016 [sym_kDefault;
   sym_kNodefault]; ACTIONS 11641 [sym_kDispId]; ACTIONS 6646 [sym_kGeneric; sym_kOperator];
   ACTIONS 11643 [sym_kPublic]; ACTIONS 1016 [sym_kStatic; sym_kVirtual; sym_kAbstract;
   sym_kDynamic; sym_kOverride; sym_kOverload; sym_kReintroduce; sym_kStdcall; sym_kCdecl;
   sym_kCppdecl; sym_kPascal; sym_kRegister; sym_kMwpascal]; ACTIONS 11645 [sym_kMessage];
   ACTIONS 11647 [sym_kDeprecated]; ACTIONS 1016 [sym_kExperimental; sym_kPlatform;
   sym_kUnimplemented; sym_kCvar]; ACTIONS 11649 [sym_kExport]; ACTIONS 1016 [sym_kFar;
   sym_kNear; sym_kSafecall; sym_kAssembler; sym_kNostackframe; sym_kInterrupt; sym_kNoreturn;
   sym_kIocheck; sym_kLocal; sym_kHardfloat; sym_kSoftfloat; sym_kMs_abi_default;
   sym_kMs_abi_cdecl; sym_kSaveregisters; sym_kSysv_abi_default; sym_kSysv_abi_cdecl;
   sym_kVectorcall; sym_kVarargs; sym_kWinapi]; ACTIONS 11651 [sym_kAlias];
   ACTIONS 6646 [sym_kAsm; sym_kBegin; sym_kClass; sym_kConst; sym_kConstructor; sym_kDestructor;
   sym_kExports; sym_kFunction]; ACTIONS 1016 [sym_kInline]; ACTIONS 6646 [sym_kLabel;
   sym_kProcedure; sym_kResourcestring; sym_kThreadvar; sym_kType; sym_kUses; sym_kVar]].

(** State 2395. *)
Definition ts_parse_table_2395 : parse_row :=
  [STATE 2887 [sym__ppIf]; STATE 2734 [sym__procAttributeNoExt];
   STATE 2735 [sym__procAttributesPp]; STATE 15193 [sym_procAttribute];
   STATE 2414 [aux_sym__declProc_repeat1]; ACTIONS 14378 [anon_sym_LBRACK];
   ACTIONS 6560 [aux_sym_ppUsesBlock_token1]; ACTIONS 3 [sym__space];
   ACTIONS 5 [sym_ppDirective]; ACTIONS 3 [sym_comment]; ACTIONS 1016 [sym_kDefault;
   sym_kNodefault]; ACTIONS 11641 [sym_kDispId]; ACTIONS 6553 [sym_kGeneric; sym_kOperator];
   ACTIONS 11643 [sym_kPublic]; ACTIONS 1016 [sym_kStatic; sym_kVirtual; sym_kAbstract;
   sym_kDynamic; sym_kOverride; sym_kOverload; sym_kReintroduce; sym_kStdcall; sym_kCdecl;
   sym_kCppdecl; sym_kPascal; sym_kRegister; sym_kMwpascal]; ACTIONS 11645 [sym_kMessage];
   ACTIONS 11647 [sym_kDeprecated]; ACTIONS 1016 [sym_kExperimental; sym_kPlatform;
   sym_kUnimplemented; sym_kCvar]; ACTIONS 11649 [sym_kExport]; ACTIONS 1016 [sym_kFar;
   sym_kNear; sym_kSafecall; sym_kAssembler; sym_kNostackframe; sym_kInterrupt; sym_kNoreturn;
   sym_kIocheck; sym_kLocal; sym_kHardfloat; sym_kSoftfloat; sym_kMs_abi_default;
   sym_kMs_abi_cdecl; sym_kSaveregisters; sym_kSysv_abi_default; sym_kSysv_abi_cdecl;
   sym_kVectorcall; sym_kVarargs; sym_kWinapi]; ACTIONS 11651 [sym_kAlias];
   ACTIONS 6553 [sym_kAsm; sym_kBegin; sym_kClass; sym_kConst; sym_kConstructor; sym_kDestructor;
   sym_kExports; sym_kFunction]; ACTIONS 1016 [sym_kInline]; ACTIONS 6553 [sym_kLabel;
   sym_kProcedure; sym_kResourcestring; sym_kThreadvar; sym_kType; sym_kUses; sym_kVar]].

(** State 2396. *)
Definition ts_parse_table_2396 : parse_row :=
  [STATE 2887 [sym__ppIf]; STATE 2734 [sym__procAttributeNoExt];
   STATE 2735 [sym__procAttributesPp]; STATE 15193 [sym_procAttribute];
   STATE 2419 [aux_sym__declProc_repeat1]; ACTIONS 14381 [anon_sym_LBRACK];
   ACTIONS 5934 [aux_sym_ppUsesBlock_token1]; ACTIONS 3 [sym__space];
   ACTIONS 5 [sym_ppDirective]; ACTIONS 3 [sym_comment]; ACTIONS 1016 [sym_kDefault;
   sym_kNodefault]; ACTIONS 11641 [sym_kDispId]; ACTIONS 5927 [sym_kGeneric; sym_kOperator];
   ACTIONS 11643 [sym_kPublic]; ACTIONS 1016 [sym_kStatic; sym_kVirtual; sym_kAbstract;
   sym_kDynamic; sym_kOverride; sym_kOverload; sym_kReintroduce; sym_kStdcall; sym_kCdecl;
   sym_kCppdecl; sym_kPascal; sym_kRegister; sym_kMwpascal]; ACTIONS 11645 [sym_kMessage];
   ACTIONS 11647 [sym_kDeprecated]; ACTIONS 1016 [sym_kExperimental; sym_kPlatform;
   sym_kUnimplemented; sym_kCvar]; ACTIONS 11649 [sym_kExport]; ACTIONS 1016 [sym_kFar;
   sym_kNear; sym_kSafecall; sym_kAssembler; sym_kNostackframe; sym_kInterrupt; sym_kNoreturn;
   sym_kIocheck; sym_kLocal; sym_kHardfloat; sym_kSoftfloat; sym_kMs_abi_default;
   sym_kMs_abi_cdecl; sym_kSaveregisters; sym_kSysv_abi_default; sym_kSysv_abi_cdecl;
   sym_kVectorcall; sym_kVarargs; sym_kWinapi]; ACTIONS 11651 [sym_kAlias];
   ACTIONS 5927 [sym_kAsm; sym_kBegin; sym_kClass; sym_kConst; sym_kConstructor; sym_kDestructor;
   sym_kExports; sym_kFunction]; ACTIONS 1016 [sym_kInline]; ACTIONS 5927 [sym_kLabel;
   sym_kProcedure; sym_kResourcestring; sym_kThreadvar; sym_kType; sym_kUses; sym_kVar]].

(** State 2397. *)
Definition ts_parse_table_2397 : parse_row :=
  [STATE 2887 [sym__ppIf]; STATE 2734 [sym__procAttributeNoExt];
   STATE 2735 [sym__procAttributesPp]; STATE 15193 [sym_procAttribute];
   STATE 2417 [aux_sym__declProc_repeat1]; ACTIONS 14384 [anon_sym_LBRACK];
   ACTIONS 1149 [aux_sym_ppUsesBlock_token1]; ACTIONS 3 [sym__space];
   ACTIONS 5 [sym_ppDirective]; ACTIONS 3 [sym_comment]; ACTIONS 1016 [sym_kDefault;
   sym_kNodefault]; ACTIONS 11641 [sym_kDispId]; ACTIONS 1142 [sym_kGeneric; sym_kOperator];
   ACTIONS 11643 [sym_kPublic]; ACTIONS 1016 [sym_kStatic; sym_kVirtual; sym_kAbstract;
   sym_kDynamic; sym_kOverride; sym_kOverload; sym_kReintroduce; sym_kStdcall; sym_kCdecl;
   sym_kCppdecl; sym_kPascal; sym_kRegister; sym_kMwpascal]; ACTIONS 11645 [sym_kMessage];
   ACTIONS 11647 [sym_kDeprecated]; ACTIONS 1016 [sym_kExperimental; sym_kPlatform;
   sym_kUnimplemented; sym_kCvar]; ACTIONS 11649 [sym_kExport]; ACTIONS 1016 [sym_kFar;
   sym_kNear; sym_kSafecall; sym_kAssembler; sym_kNostackframe; sym_kInterrupt; sym_kNoreturn;
   sym_kIocheck; sym_kLocal; sym_kHardfloat; sym_kSoftfloat; sym_kMs_abi_default;
   sym_kMs_abi_cdecl; sym_kSaveregisters; sym_kSysv_abi_default; sym_kSysv_abi_cdecl;
   sym_kVectorcall; sym_kVarargs; sym_kWinapi]; ACTIONS 11651 [sym_kAlias];
   ACTIONS 1142 [sym_kAsm; sym_kBegin; sym_kClass; sym_kConst; sym_kConstructor; sym_kDestructor;
   sym_kExports; sym_kFunction]; ACTIONS 1016 [sym_kInline]; ACTIONS 1142 [sym_kLabel;
   sym_kProcedure; sym_kResourcestring; sym_kThreadvar; sym_kType; sym_kUses; sym_kVar]].

(** State 2398. *)
Definition ts_parse_table_2398 : parse_row :=
  [STATE 2887 [sym__ppIf]; STATE 2734 [sym__procAttributeNoExt];
   STATE 2735 [sym__procAttributesPp]; STATE 15193 [sym_procAttribute];
   STATE 2417 [aux_sym__declProc_repeat1]; ACTIONS 14387 [anon_sym_LBRACK];
   ACTIONS 6003 [aux_sym_ppUsesBlock_token1]; ACTIONS 3 [sym__space];
   ACTIONS 5 [sym_ppDirective]; ACTIONS 3 [sym_comment]; ACTIONS 1016 [sym_kDefault;
   sym_kNodefault]; ACTIONS 11641 [sym_kDispId]; ACTIONS 5996 [sym_kGeneric; sym_kOperator];
   ACTIONS 11643 [sym_kPublic]; ACTIONS 1016 [sym_kStatic; sym_kVirtual; sym_kAbstract;
   sym_kDynamic; sym_kOverride; sym_kOverload; sym_kReintroduce; sym_kStdcall; sym_kCdecl;
   sym_kCppdecl; sym_kPascal; sym_kRegister; sym_kMwpascal]; ACTIONS 11645 [sym_kMessage];
   ACTIONS 11647 [sym_kDeprecated]; ACTIONS 1016 [sym_kExperimental; sym_kPlatform;
   sym_kUnimplemented; sym_kCvar]; ACTIONS 11649 [sym_kExport]; ACTIONS 1016 [sym_kFar;
   sym_kNear; sym_kSafecall; sym_kAssembler; sym_kNostackframe; sym_kInterrupt; sym_kNoreturn;
   sym_kIocheck; sym_kLocal; sym_kHardfloat; sym_kSoftfloat; sym_kMs_abi_default;
   sym_kMs_abi_cdecl; sym_kSaveregisters; sym_kSysv_abi_default; sym_kSysv_abi_cdecl;
   sym_kVectorcall; sym_kVarargs; sym_kWinapi]; ACTIONS 11651 [sym_kAlias];
   ACTIONS 5996 [sym_kAsm; sym_kBegin; sym_kClass; sym_kConst; sym_kConstructor; sym_kDestructor;
   sym_kExports; sym_kFunction]; ACTIONS 1016 [sym_kInline]; ACTIONS 5996 [sym_kLabel;
   sym_kProcedure; sym_kResourcestring; sym_kThreadvar; sym_kType; sym_kUses; sym_kVar]].

(** State 2399. *)
Definition ts_parse_table_2399 : parse_row :=
  [STATE 2887 [sym__ppIf]; STATE 2734 [sym__procAttributeNoExt];
   STATE 2735 [sym__procAttributesPp]; STATE 15193 [sym_procAttribute];
   STATE 2417 [aux_sym__declProc_repeat1]; ACTIONS 14390 [anon_sym_LBRACK];
   ACTIONS 6110 [aux_sym_ppUsesBlock_token1]; ACTIONS 3 [sym__space];
   ACTIONS 5 [sym_ppDirective]; ACTIONS 3 [sym_comment]; ACTIONS 1016 [sym_kDefault;
   sym_kNodefault]; ACTIONS 11641 [sym_kDispId]; ACTIONS 6103 [sym_kGeneric; sym_kOperator];
   ACTIONS 11643 [sym_kPublic]; ACTIONS 1016 [sym_kStatic; sym_kVirtual; sym_kAbstract;
   sym_kDynamic; sym_kOverride; sym_kOverload; sym_kReintroduce; sym_kStdcall; sym_kCdecl;
   sym_kCppdecl; sym_kPascal; sym_kRegister; sym_kMwpascal]; ACTIONS 11645 [sym_kMessage];
   ACTIONS 11647 [sym_kDeprecated]; ACTIONS 1016 [sym_kExperimental; sym_kPlatform;
   sym_kUnimplemented; sym_kCvar]; ACTIONS 11649 [sym_kExport]; ACTIONS 1016 [sym_kFar;
   sym_kNear; sym_kSafecall; sym_kAssembler; sym_kNostackframe; sym_kInterrupt; sym_kNoreturn;
   sym_kIocheck; sym_kLocal; sym_kHardfloat; sym_kSoftfloat; sym_kMs_abi_default;
   sym_kMs_abi_cdecl; sym_kSaveregisters; sym_kSysv_abi_default; sym_kSysv_abi_cdecl;
   sym_kVectorcall; sym_kVarargs; sym_kWinapi]; ACTIONS 11651 [sym_kAlias];
   ACTIONS 6103 [sym_kAsm; sym_kBegin; sym_kClass; sym_kConst; sym_kConstructor; sym_kDestructor;
   sym_kExports; sym_kFunction]; ACTIONS 1016 [sym_kInline]; ACTIONS 6103 [sym_kLabel;
   sym_kProcedure; sym_kResourcestring; sym_kThreadvar; sym_kType; sym_kUses; sym_kVar]].

(** State 2400. *)
Definition ts_parse_table_2400 : parse_row :=
  [STATE 2887 [sym__ppIf]; STATE 2734 [sym__procAttributeNoExt];
   STATE 2735 [sym__procAttributesPp]; STATE 15193 [sym_procAttribute];
   STATE 2417 [aux_sym__declProc_repeat1]; ACTIONS 14393 [anon_sym_LBRACK];
   ACTIONS 4005 [aux_sym_ppUsesBlock_token1]; ACTIONS 3 [sym__space];
   ACTIONS 5 [sym_ppDirective]; ACTIONS 3 [sym_comment]; ACTIONS 1016 [sym_kDefault;
   sym_kNodefault]; ACTIONS 11641 [sym_kDispId]; ACTIONS 3998 [sym_kGeneric; sym_kOperator];
   ACTIONS 11643 [sym_kPublic]; ACTIONS 1016 [sym_kStatic; sym_kVirtual; sym_kAbstract;
   sym_kDynamic; sym_kOverride; sym_kOverload; sym_kReintroduce; sym_kStdcall; sym_kCdecl;
   sym_kCppdecl; sym_kPascal; sym_kRegister; sym_kMwpascal]; ACTIONS 11645 [sym_kMessage];
   ACTIONS 11647 [sym_kDeprecated]; ACTIONS 1016 [sym_kExperimental; sym_kPlatform;
   sym_kUnimplemented; sym_kCvar]; ACTIONS 11649 [sym_kExport]; ACTIONS 1016 [sym_kFar;
   sym_kNear; sym_kSafecall; sym_kAssembler; sym_kNostackframe; sym_kInterrupt; sym_kNoreturn;
   sym_kIocheck; sym_kLocal; sym_kHardfloat; sym_kSoftfloat; sym_kMs_abi_default;
   sym_kMs_abi_cdecl; sym_kSaveregisters; sym_kSysv_abi_default; sym_kSysv_abi_cdecl;
   sym_kVectorcall; sym_kVarargs; sym_kWinapi]; ACTIONS 11651 [sym_kAlias];
   ACTIONS 3998 [sym_kAsm; sym_kBegin; sym_kClass; sym_kConst; sym_kConstructor; sym_kDestructor;
   sym_kExports; sym_kFunction]; ACTIONS 1016 [sym_kInline]; ACTIONS 3998 [sym_kLabel;
   sym_kProcedure; sym_kResourcestring; sym_kThreadvar; sym_kType; sym_kUses; sym_kVar]].

(** State 2401. *)
Definition ts_parse_table_2401 : parse_row :=
  [STATE 2887 [sym__ppIf]; STATE 2734 [sym__procAttributeNoExt];
   STATE 2735 [sym__procAttributesPp]; STATE 15193 [sym_procAttribute];
   STATE 2421 [aux_sym__declProc_repeat1]; ACTIONS 14396 [anon_sym_LBRACK];
   ACTIONS 6172 [aux_sym_ppUsesBlock_token1]; ACTIONS 3 [sym__space];
   ACTIONS 5 [sym_ppDirective]; ACTIONS 3 [sym_comment]; ACTIONS 1016 [sym_kDefault;
   sym_kNodefault]; ACTIONS 11641 [sym_kDispId]; ACTIONS 6165 [sym_kGeneric; sym_kOperator];
   ACTIONS 11643 [sym_kPublic]; ACTIONS 1016 [sym_kStatic; sym_kVirtual; sym_kAbstract;
   sym_kDynamic; sym_kOverride; sym_kOverload; sym_kReintroduce; sym_kStdcall; sym_kCdecl;
   sym_kCppdecl; sym_kPascal; sym_kRegister; sym_kMwpascal]; ACTIONS 11645 [sym_kMessage];
   ACTIONS 11647 [sym_kDeprecated]; ACTIONS 1016 [sym_kExperimental; sym_kPlatform;
   sym_kUnimplemented; sym_kCvar]; ACTIONS 11649 [sym_kExport]; ACTIONS 1016 [sym_kFar;
   sym_kNear; sym_kSafecall; sym_kAssembler; sym_kNostackframe; sym_kInterrupt; sym_kNoreturn;
   sym_kIocheck; sym_kLocal; sym_kHardfloat; sym_kSoftfloat; sym_kMs_abi_default;
   sym_kMs_abi_cdecl; sym_kSaveregisters; sym_kSysv_abi_default; sym_kSysv_abi_cdecl;
   sym_kVectorcall; sym_kVarargs; sym_kWinapi]; ACTIONS 11651 [sym_kAlias];
   ACTIONS 6165 [sym_kAsm; sym_kBegin; sym_kClass; sym_kConst; sym_kConstructor; sym_kDestructor;
   sym_kExports; sym_kFunction]; ACTIONS 1016 [sym_kInline]; ACTIONS 6165 [sym_kLabel;
   sym_kProcedure; sym_kResourcestring; sym_kThreadvar; sym_kType; sym_kUses; sym_kVar]].

(** State 2402. *)
Definition ts_parse_table_2402 : parse_row :=
  [STATE 2887 [sym__ppIf]; STATE 2734 [sym__procAttributeNoExt];
   STATE 2735 [sym__procAttributesPp]; STATE 15193 [sym_procAttribute];
   STATE 2417 [aux_sym__declProc_repeat1]; ACTIONS 14399 [anon_sym_LBRACK];
   ACTIONS 3794 [aux_sym_ppUsesBlock_token1]; ACTIONS 3 [sym__space];
   ACTIONS 5 [sym_ppDirective]; ACTIONS 3 [sym_comment]; ACTIONS 1016 [sym_kDefault;
   sym_kNodefault]; ACTIONS 11641 [sym_kDispId]; ACTIONS 3787 [sym_kGeneric; sym_kOperator];
   ACTIONS 11643 [sym_kPublic]; ACTIONS 1016 [sym_kStatic; sym_kVirtual; sym_kAbstract;
   sym_kDynamic; sym_kOverride; sym_kOverload; sym_kReintroduce; sym_kStdcall; sym_kCdecl;
   sym_kCppdecl; sym_kPascal; sym_kRegister; sym_kMwpascal]; ACTIONS 11645 [sym_kMessage];
   ACTIONS 11647 [sym_kDeprecated]; ACTIONS 1016 [sym_kExperimental; sym_kPlatform;
   sym_kUnimplemented; sym_kCvar]; ACTIONS 11649 [sym_kExport]; ACTIONS 1016 [sym_kFar;
   sym_kNear; sym_kSafecall; sym_kAssembler; sym_kNostackframe; sym_kInterrupt; sym_kNoreturn;
   sym_kIocheck; sym_kLocal; sym_kHardfloat; sym_kSoftfloat; sym_kMs_abi_default;
   sym_kMs_abi_cdecl; sym_kSaveregisters; sym_kSysv_abi_default; sym_kSysv_abi_cdecl;
   sym_kVectorcall; sym_kVarargs; sym_kWinapi]; ACTIONS 11651 [sym_kAlias];
   ACTIONS 3787 [sym_kAsm; sym_kBegin; sym_kClass; sym_kConst; sym_kConstructor; sym_kDestructor;
   sym_kExports; sym_kFunction]; ACTIONS 1016 [sym_kInline]; ACTIONS 3787 [sym_kLabel;
   sym_kProcedure; sym_kResourcestring; sym_kThreadvar; sym_kType; sym_kUses; sym_kVar]].

(** State 2403. *)
Definition ts_parse_table_2403 : parse_row :=
  [STATE 2887 [sym__ppIf]; STATE 2734 [sym__procAttributeNoExt];
   STATE 2735 [sym__procAttributesPp]; STATE 15193 [sym_procAttribute];
   STATE 2417 [aux_sym__declProc_repeat1]; ACTIONS 14402 [anon_sym_LBRACK];
   ACTIONS 6467 [aux_sym_ppUsesBlock_token1]; ACTIONS 3 [sym__space];
   ACTIONS 5 [sym_ppDirective]; ACTIONS 3 [sym_comment]; ACTIONS 1016 [sym_kDefault;
   sym_kNodefault]; ACTIONS 11641 [sym_kDispId]; ACTIONS 6460 [sym_kGeneric; sym_kOperator];
   ACTIONS 11643 [sym_kPublic]; ACTIONS 1016 [sym_kStatic; sym_kVirtual; sym_kAbstract;
   sym_kDynamic; sym_kOverride; sym_kOverload; sym_kReintroduce; sym_kStdcall; sym_kCdecl;
   sym_kCppdecl; sym_kPascal; sym_kRegister; sym_kMwpascal]; ACTIONS 11645 [sym_kMessage];
   ACTIONS 11647 [sym_kDeprecated]; ACTIONS 1016 [sym_kExperimental; sym_kPlatform;
   sym_kUnimplemented; sym_kCvar]; ACTIONS 11649 [sym_kExport]; ACTIONS 1016 [sym_kFar;
   sym_kNear; sym_kSafecall; sym_kAssembler; sym_kNostackframe; sym_kInterrupt; sym_kNoreturn;
   sym_kIocheck; sym_kLocal; sym_kHardfloat; sym_kSoftfloat; sym_kMs_abi_default;
   sym_kMs_abi_cdecl; sym_kSaveregisters; sym_kSysv_abi_default; sym_kSysv_abi_cdecl;
   sym_kVectorcall; sym_kVarargs; sym_kWinapi]; ACTIONS 11651 [sym_kAlias];
   ACTIONS 6460 [sym_kAsm; sym_kBegin; sym_kClass; sym_kConst; sym_kConstructor; sym_kDestructor;
   sym_kExports; sym_kFunction]; ACTIONS 1016 [sym_kInline]; ACTIONS 6460 [sym_kLabel;
   sym_kProcedure; sym_kResourcestring; sym_kThreadvar; sym_kType; sym_kUses; sym_kVar]].

(** State 2404. *)
Definition ts_parse_table_2404 : parse_row :=
  [STATE 2887 [sym__ppIf]; STATE 2734 [sym__procAttributeNoExt];
   STATE 2735 [sym__procAttributesPp]; STATE 15193 [sym_procAttribute];
   STATE 2403 [aux_sym__declProc_repeat1]; ACTIONS 14405 [anon_sym_LBRACK];
   ACTIONS 7326 [aux_sym_ppUsesBlock_token1]; ACTIONS 3 [sym__space];
   ACTIONS 5 [sym_ppDirective]; ACTIONS 3 [sym_comment]; ACTIONS 1016 [sym_kDefault;
   sym_kNodefault]; ACTIONS 11641 [sym_kDispId]; ACTIONS 7319 [sym_kGeneric; sym_kOperator];
   ACTIONS 11643 [sym_kPublic]; ACTIONS 1016 [sym_kStatic; sym_kVirtual; sym_kAbstract;
   sym_kDynamic; sym_kOverride; sym_kOverload; sym_kReintroduce; sym_kStdcall; sym_kCdecl;
   sym_kCppdecl; sym_kPascal; sym_kRegister; sym_kMwpascal]; ACTIONS 11645 [sym_kMessage];
   ACTIONS 11647 [sym_kDeprecated]; ACTIONS 1016 [sym_kExperimental; sym_kPlatform;
   sym_kUnimplemented; sym_kCvar]; ACTIONS 11649 [sym_kExport]; ACTIONS 1016 [sym_kFar;
   sym_kNear; sym_kSafecall; sym_kAssembler; sym_kNostackframe; sym_kInterrupt; sym_kNoreturn;
   sym_kIocheck; sym_kLocal; sym_kHardfloat; sym_kSoftfloat; sym_kMs_abi_default;
   sym_kMs_abi_cdecl; sym_kSaveregisters; sym_kSysv_abi_default; sym_kSysv_abi_cdecl;
   sym_kVectorcall; sym_kVarargs; sym_kWinapi]; ACTIONS 11651 [sym_kAlias];
   ACTIONS 7319 [sym_kAsm; sym_kBegin; sym_kClass; sym_kConst; sym_kConstructor; sym_kDestructor;
   sym_kExports; sym_kFunction]; ACTIONS 1016 [sym_kInline]; ACTIONS 7319 [sym_kLabel;
   sym_kProcedure; sym_kResourcestring; sym_kThreadvar; sym_kType; sym_kUses; sym_kVar]].

(** State 2405. *)
Definition ts_parse_table_2405 : parse_row :=
  [STATE 2887 [sym__ppIf]; STATE 2734 [sym__procAttributeNoExt];
   STATE 2735 [sym__procAttributesPp]; STATE 15193 [sym_procAttribute];
   STATE 2417 [aux_sym__declProc_repeat1]; ACTIONS 14408 [anon_sym_LBRACK];
   ACTIONS 6076 [aux_sym_ppUsesBlock_token1]; ACTIONS 3 [sym__space];
   ACTIONS 5 [sym_ppDirective]; ACTIONS 3 [sym_comment]; ACTIONS 1016 [sym_kDefault;
   sym_kNodefault]; ACTIONS 11641 [sym_kDispId]; ACTIONS 6069 [sym_kGeneric; sym_kOperator];
   ACTIONS 11643 [sym_kPublic]; ACTIONS 1016 [sym_kStatic; sym_kVirtual; sym_kAbstract;
   sym_kDynamic; sym_kOverride; sym_kOverload; sym_kReintroduce; sym_kStdcall; sym_kCdecl;
   sym_kCppdecl; sym_kPascal; sym_kRegister; sym_kMwpascal]; ACTIONS 11645 [sym_kMessage];
   ACTIONS 11647 [sym_kDeprecated]; ACTIONS 1016 [sym_kExperimental; sym_kPlatform;
   sym_kUnimplemented; sym_kCvar]; ACTIONS 11649 [sym_kExport]; ACTIONS 1016 [sym_kFar;
   sym_kNear; sym_kSafecall; sym_kAssembler; sym_kNostackframe; sym_kInterrupt; sym_kNoreturn;
   sym_kIocheck; sym_kLocal; sym_kHardfloat; sym_kSoftfloat; sym_kMs_abi_default;
   sym_kMs_abi_cdecl; sym_kSaveregisters; sym_kSysv_abi_default; sym_kSysv_abi_cdecl;
   sym_kVectorcall; sym_kVarargs; sym_kWinapi]; ACTIONS 11651 [sym_kAlias];
   ACTIONS 6069 [sym_kAsm; sym_kBegin; sym_kClass; sym_kConst; sym_kConstructor; sym_kDestructor;
   sym_kExports; sym_kFunction]; ACTIONS 1016 [sym_kInline]; ACTIONS 6069 [sym_kLabel;
   sym_kProcedure; sym_kResourcestring; sym_kThreadvar; sym_kType; sym_kUses; sym_kVar]].

(** State 2406. *)
Definition ts_parse_table_2406 : parse_row :=
  [STATE 2887 [sym__ppIf]; STATE 2734 [sym__procAttributeNoExt];
   STATE 2735 [sym__procAttributesPp]; STATE 15193 [sym_procAttribute];
   STATE 2417 [aux_sym__declProc_repeat1]; ACTIONS 14411 [anon_sym_LBRACK];
   ACTIONS 6889 [aux_sym_ppUsesBlock_token1]; ACTIONS 3 [sym__space];
   ACTIONS 5 [sym_ppDirective]; ACTIONS 3 [sym_comment]; ACTIONS 1016 [sym_kDefault;
   sym_kNodefault]; ACTIONS 11641 [sym_kDispId]; ACTIONS 6882 [sym_kGeneric; sym_kOperator];
   ACTIONS 11643 [sym_kPublic]; ACTIONS 1016 [sym_kStatic; sym_kVirtual; sym_kAbstract;
   sym_kDynamic; sym_kOverride; sym_kOverload; sym_kReintroduce; sym_kStdcall; sym_kCdecl;
   sym_kCppdecl; sym_kPascal; sym_kRegister; sym_kMwpascal]; ACTIONS 11645 [sym_kMessage];
   ACTIONS 11647 [sym_kDeprecated]; ACTIONS 1016 [sym_kExperimental; sym_kPlatform;
   sym_kUnimplemented; sym_kCvar]; ACTIONS 11649 [sym_kExport]; ACTIONS 1016 [sym_kFar;
   sym_kNear; sym_kSafecall; sym_kAssembler; sym_kNostackframe; sym_kInterrupt; sym_kNoreturn;
   sym_kIocheck; sym_kLocal; sym_kHardfloat; sym_kSoftfloat; sym_kMs_abi_default;
   sym_kMs_abi_cdecl; sym_kSaveregisters; sym_kSysv_abi_default; sym_kSysv_abi_cdecl;
   sym_kVectorcall; sym_kVarargs; sym_kWinapi]; ACTIONS 11651 [sym_kAlias];
   ACTIONS 6882 [sym_kAsm; sym_kBegin; sym_kClass; sym_kConst; sym_kConstructor; sym_kDestructor;
   sym_kExports; sym_kFunction]; ACTIONS 1016 [sym_kInline]; ACTIONS 6882 [sym_kLabel;
   sym_kProcedure; sym_kResourcestring; sym_kThreadvar; sym_kType; sym_kUses; sym_kVar]].

(** State 2407. *)
Definition ts_parse_table_2407 : parse_row :=
  [STATE 2887 [sym__ppIf]; STATE 2734 [sym__procAttributeNoExt];
   STATE 2735 [sym__procAttributesPp]; STATE 15193 [sym_procAttribute];
   STATE 2417 [aux_sym__declProc_repeat1]; ACTIONS 14414 [anon_sym_LBRACK];
   ACTIONS 7153 [aux_sym_ppUsesBlock_token1]; ACTIONS 3 [sym__space];
   ACTIONS 5 [sym_ppDirective]; ACTIONS 3 [sym_comment]; ACTIONS 1016 [sym_kDefault;
   sym_kNodefault]; ACTIONS 11641 [sym_kDispId]; ACTIONS 7146 [sym_kGeneric; sym_kOperator];
   ACTIONS 11643 [sym_kPublic]; ACTIONS 1016 [sym_kStatic; sym_kVirtual; sym_kAbstract;
   sym_kDynamic; sym_kOverride; sym_kOverload; sym_kReintroduce; sym_kStdcall; sym_kCdecl;
   sym_kCppdecl; sym_kPascal; sym_kRegister; sym_kMwpascal]; ACTIONS 11645 [sym_kMessage];
   ACTIONS 11647 [sym_kDeprecated]; ACTIONS 1016 [sym_kExperimental; sym_kPlatform;
   sym_kUnimplemented; sym_kCvar]; ACTIONS 11649 [sym_kExport]; ACTIONS 1016 [sym_kFar;
   sym_kNear; sym_kSafecall; sym_kAssembler; sym_kNostackframe; sym_kInterrupt; sym_kNoreturn;
   sym_kIocheck; sym_kLocal; sym_kHardfloat; sym_kSoftfloat; sym_kMs_abi_default;
   sym_kMs_abi_cdecl; sym_kSaveregisters; sym_kSysv_abi_default; sym_kSysv_abi_cdecl;
   sym_kVectorcall; sym_kVarargs; sym_kWinapi]; ACTIONS 11651 [sym_kAlias];
   ACTIONS 7146 [sym_kAsm; sym_kBegin; sym_kClass; sym_kConst; sym_kConstructor; sym_kDestructor;
   sym_kExports; sym_kFunction]; ACTIONS 1016 [sym_kInline]; ACTIONS 7146 [sym_kLabel;
   sym_kProcedure; sym_kResourcestring; sym_kThreadvar; sym_kType; sym_kUses; sym_kVar]].

(** State 2408. *)
Definition ts_parse_table_2408 : parse_row :=
  [STATE 2887 [sym__ppIf]; STATE 2734 [sym__procAttributeNoExt];
   STATE 2735 [sym__procAttributesPp]; STATE 15193 [sym_procAttribute];
   STATE 2416 [aux_sym__declProc_repeat1]; ACTIONS 14417 [anon_sym_LBRACK];
   ACTIONS 4569 [aux_sym_ppUsesBlock_token1]; ACTIONS 3 [sym__space];
   ACTIONS 5 [sym_ppDirective]; ACTIONS 3 [sym_comment]; ACTIONS 1016 [sym_kDefault;
   sym_kNodefault]; ACTIONS 11641 [sym_kDispId]; ACTIONS 4562 [sym_kGeneric; sym_kOperator];
   ACTIONS 11643 [sym_kPublic]; ACTIONS 1016 [sym_kStatic; sym_kVirtual; sym_kAbstract;
   sym_kDynamic; sym_kOverride; sym_kOverload; sym_kReintroduce; sym_kStdcall; sym_kCdecl;
   sym_kCppdecl; sym_kPascal; sym_kRegister; sym_kMwpascal]; ACTIONS 11645 [sym_kMessage];
   ACTIONS 11647 [sym_kDeprecated]; ACTIONS 1016 [sym_kExperimental; sym_kPlatform;
   sym_kUnimplemented; sym_kCvar]; ACTIONS 11649 [sym_kExport]; ACTIONS 1016 [sym_kFar;
   sym_kNear; sym_kSafecall; sym_kAssembler; sym_kNostackframe; sym_kInterrupt; sym_kNoreturn;
   sym_kIocheck; sym_kLocal; sym_kHardfloat; sym_kSoftfloat; sym_kMs_abi_default;
   sym_kMs_abi_cdecl; sym_kSaveregisters; sym_kSysv_abi_default; sym_kSysv_abi_cdecl;
   sym_kVectorcall; sym_kVarargs; sym_kWinapi]; ACTIONS 11651 [sym_kAlias];
   ACTIONS 4562 [sym_kAsm; sym_kBegin; sym_kClass; sym_kConst; sym_kConstructor; sym_kDestructor;
   sym_kExports; sym_kFunction]; ACTIONS 1016 [sym_kInline]; ACTIONS 4562 [sym_kLabel;
   sym_kProcedure; sym_kResourcestring; sym_kThreadvar; sym_kType; sym_kUses; sym_kVar]].

(** State 2409. *)
Definition ts_parse_table_2409 : parse_row :=
  [STATE 2887 [sym__ppIf]; STATE 2734 [sym__procAttributeNoExt];
   STATE 2735 [sym__procAttributesPp]; STATE 15193 [sym_procAttribute];
   STATE 2417 [aux_sym__declProc_repeat1]; ACTIONS 14420 [anon_sym_LBRACK];
   ACTIONS 6216 [aux_sym_ppUsesBlock_token1]; ACTIONS 3 [sym__space];
   ACTIONS 5 [sym_ppDirective]; ACTIONS 3 [sym_comment]; ACTIONS 1016 [sym_kDefault;
   sym_kNodefault]; ACTIONS 11641 [sym_kDispId]; ACTIONS 6209 [sym_kGeneric; sym_kOperator];
   ACTIONS 11643 [sym_kPublic]; ACTIONS 1016 [sym_kStatic; sym_kVirtual; sym_kAbstract;
   sym_kDynamic; sym_kOverride; sym_kOverload; sym_kReintroduce; sym_kStdcall; sym_kCdecl;
   sym_kCppdecl; sym_kPascal; sym_kRegister; sym_kMwpascal]; ACTIONS 11645 [sym_kMessage];
   ACTIONS 11647 [sym_kDeprecated]; ACTIONS 1016 [sym_kExperimental; sym_kPlatform;
   sym_kUnimplemented; sym_kCvar]; ACTIONS 11649 [sym_kExport]; ACTIONS 1016 [sym_kFar;
   sym_kNear; sym_kSafecall; sym_kAssembler; sym_kNostackframe; sym_kInterrupt; sym_kNoreturn;
   sym_kIocheck; sym_kLocal; sym_kHardfloat; sym_kSoftfloat; sym_kMs_abi_default;
   sym_kMs_abi_cdecl; sym_kSaveregisters; sym_kSysv_abi_default; sym_kSysv_abi_cdecl;
   sym_kVectorcall; sym_kVarargs; sym_kWinapi]; ACTIONS 11651 [sym_kAlias];
   ACTIONS 6209 [sym_kAsm; sym_kBegin; sym_kClass; sym_kConst; sym_kConstructor; sym_kDestructor;
   sym_kExports; sym_kFunction]; ACTIONS 1016 [sym_kInline]; ACTIONS 6209 [sym_kLabel;
   sym_kProcedure; sym_kResourcestring; sym_kThreadvar; sym_kType; sym_kUses; sym_kVar]].

(** State 2410. *)
Definition ts_parse_table_2410 : parse_row :=
  [STATE 2887 [sym__ppIf]; STATE 2734 [sym__procAttributeNoExt];
   STATE 2735 [sym__procAttributesPp]; STATE 15193 [sym_procAttribute];
   STATE 2417 [aux_sym__declProc_repeat1]; ACTIONS 14423 [anon_sym_LBRACK];
   ACTIONS 4641 [aux_sym_ppUsesBlock_token1]; ACTIONS 3 [sym__space];
   ACTIONS 5 [sym_ppDirective]; ACTIONS 3 [sym_comment]; ACTIONS 1016 [sym_kDefault;
   sym_kNodefault]; ACTIONS 11641 [sym_kDispId]; ACTIONS 4634 [sym_kGeneric; sym_kOperator];
   ACTIONS 11643 [sym_kPublic]; ACTIONS 1016 [sym_kStatic; sym_kVirtual; sym_kAbstract;
   sym_kDynamic; sym_kOverride; sym_kOverload; sym_kReintroduce; sym_kStdcall; sym_kCdecl;
   sym_kCppdecl; sym_kPascal; sym_kRegister; sym_kMwpascal]; ACTIONS 11645 [sym_kMessage];
   ACTIONS 11647 [sym_kDeprecated]; ACTIONS 1016 [sym_kExperimental; sym_kPlatform;
   sym_kUnimplemented; sym_kCvar]; ACTIONS 11649 [sym_kExport]; ACTIONS 1016 [sym_kFar;
   sym_kNear; sym_kSafecall; sym_kAssembler; sym_kNostackframe; sym_kInterrupt; sym_kNoreturn;
   sym_kIocheck; sym_kLocal; sym_kHardfloat; sym_kSoftfloat; sym_kMs_abi_default;
   sym_kMs_abi_cdecl; sym_kSaveregisters; sym_kSysv_abi_default; sym_kSysv_abi_cdecl;
   sym_kVectorcall; sym_kVarargs; sym_kWinapi]; ACTIONS 11651 [sym_kAlias];
   ACTIONS 4634 [sym_kAsm; sym_kBegin; sym_kClass; sym_kConst; sym_kConstructor; sym_kDestructor;
   sym_kExports; sym_kFunction]; ACTIONS 1016 [sym_kInline]; ACTIONS 4634 [sym_kLabel;
   sym_kProcedure; sym_kResourcestring; sym_kThreadvar; sym_kType; sym_kUses; sym_kVar]].

(** State 2411. *)
Definition ts_parse_table_2411 : parse_row :=
  [STATE 2887 [sym__ppIf]; STATE 2734 [sym__procAttributeNoExt];
   STATE 2735 [sym__procAttributesPp]; STATE 15193 [sym_procAttribute];
   STATE 2426 [aux_sym__declProc_repeat1]; ACTIONS 14426 [anon_sym_LBRACK];
   ACTIONS 6328 [aux_sym_ppUsesBlock_token1]; ACTIONS 3 [sym__space];
   ACTIONS 5 [sym_ppDirective]; ACTIONS 3 [sym_comment]; ACTIONS 1016 [sym_kDefault;
   sym_kNodefault]; ACTIONS 11641 [sym_kDispId]; ACTIONS 6321 [sym_kGeneric; sym_kOperator];
   ACTIONS 11643 [sym_kPublic]; ACTIONS 1016 [sym_kStatic; sym_kVirtual; sym_kAbstract;
   sym_kDynamic; sym_kOverride; sym_kOverload; sym_kReintroduce; sym_kStdcall; sym_kCdecl;
   sym_kCppdecl; sym_kPascal; sym_kRegister; sym_kMwpascal]; ACTIONS 11645 [sym_kMessage];
   ACTIONS 11647 [sym_kDeprecated]; ACTIONS 1016 [sym_kExperimental; sym_kPlatform;
   sym_kUnimplemented; sym_kCvar]; ACTIONS 11649 [sym_kExport]; ACTIONS 1016 [sym_kFar;
   sym_kNear; sym_kSafecall; sym_kAssembler; sym_kNostackframe; sym_kInterrupt; sym_kNoreturn;
   sym_kIocheck; sym_kLocal; sym_kHardfloat; sym_kSoftfloat; sym_kMs_abi_default;
   sym_kMs_abi_cdecl; sym_kSaveregisters; sym_kSysv_abi_default; sym_kSysv_abi_cdecl;
   sym_kVectorcall; sym_kVarargs; sym_kWinapi]; ACTIONS 11651 [sym_kAlias];
   ACTIONS 6321 [sym_kAsm; sym_kBegin; sym_kClass; sym_kConst; sym_kConstructor; sym_kDestructor;
   sym_kExports; sym_kFunction]; ACTIONS 1016 [sym_kInline]; ACTIONS 6321 [sym_kLabel;
   sym_kProcedure; sym_kResourcestring; sym_kThreadvar; sym_kType; sym_kUses; sym_kVar]].

(** State 2412. *)
Definition ts_parse_table_2412 : parse_row :=
  [STATE 2887 [sym__ppIf]; STATE 2734 [sym__procAttributeNoExt];
   STATE 2735 [sym__procAttributesPp]; STATE 15193 [sym_procAttribute];
   STATE 2427 [aux_sym__declProc_repeat1]; ACTIONS 14429 [anon_sym_LBRACK];
   ACTIONS 6362 [aux_sym_ppUsesBlock_token1]; ACTIONS 3 [sym__space];
   ACTIONS 5 [sym_ppDirective]; ACTIONS 3 [sym_comment]; ACTIONS 1016 [sym_kDefault;
   sym_kNodefault]; ACTIONS 11641 [sym_kDispId]; ACTIONS 6355 [sym_kGeneric; sym_kOperator];
   ACTIONS 11643 [sym_kPublic]; ACTIONS 1016 [sym_kStatic; sym_kVirtual; sym_kAbstract;
   sym_kDynamic; sym_kOverride; sym_kOverload; sym_kReintroduce; sym_kStdcall; sym_kCdecl;
   sym_kCppdecl; sym_kPascal; sym_kRegister; sym_kMwpascal]; ACTIONS 11645 [sym_kMessage];
   ACTIONS 11647 [sym_kDeprecated]; ACTIONS 1016 [sym_kExperimental; sym_kPlatform;
   sym_kUnimplemented; sym_kCvar]; ACTIONS 11649 [sym_kExport]; ACTIONS 1016 [sym_kFar;
   sym_kNear; sym_kSafecall; sym_kAssembler; sym_kNostackframe; sym_kInterrupt; sym_kNoreturn;
   sym_kIocheck; sym_kLocal; sym_kHardfloat; sym_kSoftfloat; sym_kMs_abi_default;
   sym_kMs_abi_cdecl; sym_kSaveregisters; sym_kSysv_abi_default; sym_kSysv_abi_cdecl;
   sym_kVectorcall; sym_kVarargs; sym_kWinapi]; ACTIONS 11651 [sym_kAlias];
   ACTIONS 6355 [sym_kAsm; sym_kBegin; sym_kClass; sym_kConst; sym_kConstructor; sym_kDestructor;
   sym_kExports; sym_kFunction]; ACTIONS 1016 [sym_kInline]; ACTIONS 6355 [sym_kLabel;
   sym_kProcedure; sym_kResourcestring; sym_kThreadvar; sym_kType; sym_kUses; sym_kVar]].

(** State 2413. *)
Definition ts_parse_table_2413 : parse_row :=
  [STATE 2887 [sym__ppIf]; STATE 2734 [sym__procAttributeNoExt];
   STATE 2735 [sym__procAttributesPp]; STATE 15193 [sym_procAttribute];
   STATE 2417 [aux_sym__declProc_repeat1]; ACTIONS 14432 [anon_sym_LBRACK];
   ACTIONS 4154 [aux_sym_ppUsesBlock_token1]; ACTIONS 3 [sym__space];
   ACTIONS 5 [sym_ppDirective]; ACTIONS 3 [sym_comment]; ACTIONS 1016 [sym_kDefault;
   sym_kNodefault]; ACTIONS 11641 [sym_kDispId]; ACTIONS 4147 [sym_kGeneric; sym_kOperator];
   ACTIONS 11643 [sym_kPublic]; ACTIONS 1016 [sym_kStatic; sym_kVirtual; sym_kAbstract;
   sym_kDynamic; sym_kOverride; sym_kOverload; sym_kReintroduce; sym_kStdcall; sym_kCdecl;
   sym_kCppdecl; sym_kPascal; sym_kRegister; sym_kMwpascal]; ACTIONS 11645 [sym_kMessage];
   ACTIONS 11647 [sym_kDeprecated]; ACTIONS 1016 [sym_kExperimental; sym_kPlatform;
   sym_kUnimplemented; sym_kCvar]; ACTIONS 11649 [sym_kExport]; ACTIONS 1016 [sym_kFar;
   sym_kNear; sym_kSafecall; sym_kAssembler; sym_kNostackframe; sym_kInterrupt; sym_kNoreturn;
   sym_kIocheck; sym_kLocal; sym_kHardfloat; sym_kSoftfloat; sym_kMs_abi_default;
   sym_kMs_abi_cdecl; sym_kSaveregisters; sym_kSysv_abi_default; sym_kSysv_abi_cdecl;
   sym_kVectorcall; sym_kVarargs; sym_kWinapi]; ACTIONS 11651 [sym_kAlias];
   ACTIONS 4147 [sym_kAsm; sym_kBegin; sym_kClass; sym_kConst; sym_kConstructor; sym_kDestructor;
   sym_kExports; sym_kFunction]; ACTIONS 1016 [sym_kInline]; ACTIONS 4147 [sym_kLabel;
   sym_kProcedure; sym_kResourcestring; sym_kThreadvar; sym_kType; sym_kUses; sym_kVar]].

(** State 2414. *)
Definition ts_parse_table_2414 : parse_row :=
  [STATE 2887 [sym__ppIf]; STATE 2734 [sym__procAttributeNoExt];
   STATE 2735 [sym__procAttributesPp]; STATE 15193 [sym_procAttribute];
   STATE 2417 [aux_sym__declProc_repeat1]; ACTIONS 14435 [anon_sym_LBRACK];
   ACTIONS 4945 [aux_sym_ppUsesBlock_token1]; ACTIONS 3 [sym__space];
   ACTIONS 5 [sym_ppDirective]; ACTIONS 3 [sym_comment]; ACTIONS 1016 [sym_kDefault;
   sym_kNodefault]; ACTIONS 11641 [sym_kDispId]; ACTIONS 4938 [sym_kGeneric; sym_kOperator];
   ACTIONS 11643 [sym_kPublic]; ACTIONS 1016 [sym_kStatic; sym_kVirtual; sym_kAbstract;
   sym_kDynamic; sym_kOverride; sym_kOverload; sym_kReintroduce; sym_kStdcall; sym_kCdecl;
   sym_kCppdecl; sym_kPascal; sym_kRegister; sym_kMwpascal]; ACTIONS 11645 [sym_kMessage];
   ACTIONS 11647 [sym_kDeprecated]; ACTIONS 1016 [sym_kExperimental; sym_kPlatform;
   sym_kUnimplemented; sym_kCvar]; ACTIONS 11649 [sym_kExport]; ACTIONS 1016 [sym_kFar;
   sym_kNear; sym_kSafecall; sym_kAssembler; sym_kNostackframe; sym_kInterrupt; sym_kNoreturn;
   sym_kIocheck; sym_kLocal; sym_kHardfloat; sym_kSoftfloat; sym_kMs_abi_default;
   sym_kMs_abi_cdecl; sym_kSaveregisters; sym_kSysv_abi_default; sym_kSysv_abi_cdecl;
   sym_kVectorcall; sym_kVarargs; sym_kWinapi]; ACTIONS 11651 [sym_kAlias];
   ACTIONS 4938 [sym_kAsm; sym_kBegin; sym_kClass; sym_kConst; sym_kConstructor; sym_kDestructor;
   sym_kExports; sym_kFunction]; ACTIONS 1016 [sym_kInline]; ACTIONS 4938 [sym_kLabel;
   sym_kProcedure; sym_kResourcestring; sym_kThreadvar; sym_kType; sym_kUses; sym_kVar]].

(** State 2415. *)
Definition ts_parse_table_2415 : parse_row :=
  [STATE 2887 [sym__ppIf]; STATE 2734 [sym__procAttributeNoExt];
   STATE 2735 [sym__procAttributesPp]; STATE 15193 [sym_procAttribute];
   STATE 2460 [aux_sym__declProc_repeat1]; ACTIONS 14438 [anon_sym_LBRACK];
   ACTIONS 5509 [aux_sym_ppUsesBlock_token1]; ACTIONS 3 [sym__space];
   ACTIONS 5 [sym_ppDirective]; ACTIONS 3 [sym_comment]; ACTIONS 1016 [sym_kDefault;
   sym_kNodefault]; ACTIONS 11641 [sym_kDispId]; ACTIONS 5502 [sym_kGeneric; sym_kOperator];
   ACTIONS 11643 [sym_kPublic]; ACTIONS 1016 [sym_kStatic; sym_kVirtual; sym_kAbstract;
   sym_kDynamic; sym_kOverride; sym_kOverload; sym_kReintroduce; sym_kStdcall; sym_kCdecl;
   sym_kCppdecl; sym_kPascal; sym_kRegister; sym_kMwpascal]; ACTIONS 11645 [sym_kMessage];
   ACTIONS 11647 [sym_kDeprecated]; ACTIONS 1016 [sym_kExperimental; sym_kPlatform;
   sym_kUnimplemented; sym_kCvar]; ACTIONS 11649 [sym_kExport]; ACTIONS 1016 [sym_kFar;
   sym_kNear; sym_kSafecall; sym_kAssembler; sym_kNostackframe; sym_kInterrupt; sym_kNoreturn;
   sym_kIocheck; sym_kLocal; sym_kHardfloat; sym_kSoftfloat; sym_kMs_abi_default;
   sym_kMs_abi_cdecl; sym_kSaveregisters; sym_kSysv_abi_default; sym_kSysv_abi_cdecl;
   sym_kVectorcall; sym_kVarargs; sym_kWinapi]; ACTIONS 11651 [sym_kAlias];
   ACTIONS 5502 [sym_kAsm; sym_kBegin; sym_kClass; sym_kConst; sym_kConstructor; sym_kDestructor;
   sym_kExports; sym_kFunction]; ACTIONS 1016 [sym_kInline]; ACTIONS 5502 [sym_kLabel;
   sym_kProcedure; sym_kResourcestring; sym_kThreadvar; sym_kType; sym_kUses; sym_kVar]].

(** State 2416. *)
Definition ts_parse_table_2416 : parse_row :=
  [STATE 2887 [sym__ppIf]; STATE 2734 [sym__procAttributeNoExt];
   STATE 2735 [sym__procAttributesPp]; STATE 15193 [sym_procAttribute];
   STATE 2417 [aux_sym__declProc_repeat1]; ACTIONS 14441 [anon_sym_LBRACK];
   ACTIONS 5540 [aux_sym_ppUsesBlock_token1]; ACTIONS 3 [sym__space];
   ACTIONS 5 [sym_ppDirective]; ACTIONS 3 [sym_comment]; ACTIONS 1016 [sym_kDefault;
   sym_kNodefault]; ACTIONS 11641 [sym_kDispId]; ACTIONS 5533 [sym_kGeneric; sym_kOperator];
   ACTIONS 11643 [sym_kPublic]; ACTIONS 1016 [sym_kStatic; sym_kVirtual; sym_kAbstract;
   sym_kDynamic; sym_kOverride; sym_kOverload; sym_kReintroduce; sym_kStdcall; sym_kCdecl;
   sym_kCppdecl; sym_kPascal; sym_kRegister; sym_kMwpascal]; ACTIONS 11645 [sym_kMessage];
   ACTIONS 11647 [sym_kDeprecated]; ACTIONS 1016 [sym_kExperimental; sym_kPlatform;
   sym_kUnimplemented; sym_kCvar]; ACTIONS 11649 [sym_kExport]; ACTIONS 1016 [sym_kFar;
   sym_kNear; sym_kSafecall; sym_kAssembler; sym_kNostackframe; sym_kInterrupt; sym_kNoreturn;
   sym_kIocheck; sym_kLocal; sym_kHardfloat; sym_kSoftfloat; sym_kMs_abi_default;
   sym_kMs_abi_cdecl; sym_kSaveregisters; sym_kSysv_abi_default; sym_kSysv_abi_cdecl;
   sym_kVectorcall; sym_kVarargs; sym_kWinapi]; ACTIONS 11651 [sym_kAlias];
   ACTIONS 5533 [sym_kAsm; sym_kBegin; sym_kClass; sym_kConst; sym_kConstructor; sym_kDestructor;
   sym_kExports; sym_kFunction]; ACTIONS 1016 [sym_kInline]; ACTIONS 5533 [sym_kLabel;
   sym_kProcedure; sym_kResourcestring; sym_kThreadvar; sym_kType; sym_kUses; sym_kVar]].

(** State 2417. *)
Definition ts_parse_table_2417 : parse_row :=
  [STATE 2887 [sym__ppIf]; STATE 2734 [sym__procAttributeNoExt];
   STATE 2735 [sym__procAttributesPp]; STATE 15193 [sym_procAttribute];
   STATE 2417 [aux_sym__declProc_repeat1]; ACTIONS 14444 [anon_sym_LBRACK];
   ACTIONS 1180 [aux_sym_ppUsesBlock_token1]; ACTIONS 3 [sym__space];
   ACTIONS 5 [sym_ppDirective]; ACTIONS 3 [sym_comment]; ACTIONS 1183 [sym_kDefault;
   sym_kNodefault]; ACTIONS 1186 [sym_kDispId]; ACTIONS 1173 [sym_kGeneric; sym_kOperator];
   ACTIONS 1189 [sym_kPublic]; ACTIONS 1183 [sym_kStatic; sym_kVirtual; sym_kAbstract;
   sym_kDynamic; sym_kOverride; sym_kOverload; sym_kReintroduce; sym_kStdcall; sym_kCdecl;
   sym_kCppdecl; sym_kPascal; sym_kRegister; sym_kMwpascal]; ACTIONS 1192 [sym_kMessage];
   ACTIONS 1195 [sym_kDeprecated]; ACTIONS 1183 [sym_kExperimental; sym_kPlatform;
   sym_kUnimplemented; sym_kCvar]; ACTIONS 1198 [sym_kExport]; ACTIONS 1183 [sym_kFar; sym_kNear;
   sym_kSafecall; sym_kAssembler; sym_kNostackframe; sym_kInterrupt; sym_kNoreturn; sym_kIocheck;
   sym_kLocal; sym_kHardfloat; sym_kSoftfloat; sym_kMs_abi_default; sym_kMs_abi_cdecl;
   sym_kSaveregisters; sym_kSysv_abi_default; sym_kSysv_abi_cdecl; sym_kVectorcall; sym_kVarargs;
   sym_kWinapi]; ACTIONS 1201 [sym_kAlias]; ACTIONS 1173 [sym_kAsm; sym_kBegin; sym_kClass;
   sym_kConst; sym_kConstructor; sym_kDestructor; sym_kExports; sym_kFunction];
   ACTIONS 1183 [sym_kInline]; ACTIONS 1173 [sym_kLabel; sym_kProcedure; sym_kResourcestring;
   sym_kThreadvar; sym_kType; sym_kUses; sym_kVar]].

(** State 2418. *)
Definition ts_parse_table_2418 : parse_row :=
  [ACTIONS 10796 [anon_sym_LBRACK; aux_sym_ppUsesBlock_token1]; ACTIONS 3 [sym__space];
   ACTIONS 5 [sym_ppDirective]; ACTIONS 3 [sym_comment]; ACTIONS 10796 [sym_identifier;
   sym_kDefault; sym_kNodefault; sym_kDispId; sym_kGeneric; sym_kOperator; sym_kPublished;
   sym_kPublic; sym_kProtected; sym_kPrivate; sym_kStrict; sym_kRequired; sym_kOptional;
   sym_kStatic; sym_kVirtual; sym_kAbstract; sym_kDynamic; sym_kOverride; sym_kOverload;
   sym_kReintroduce; sym_kStdcall; sym_kCdecl; sym_kCppdecl; sym_kPascal; sym_kRegister;
   sym_kMwpascal; sym_kMessage; sym_kDeprecated; sym_kExperimental; sym_kPlatform;
   sym_kUnimplemented; sym_kCvar; sym_kExport; sym_kFar; sym_kNear; sym_kSafecall;
   sym_kAssembler; sym_kNostackframe; sym_kInterrupt; sym_kNoreturn; sym_kIocheck; sym_kLocal;
   sym_kHardfloat; sym_kSoftfloat; sym_kMs_abi_default; sym_kMs_abi_cdecl; sym_kSaveregisters;
   sym_kSysv_abi_default; sym_kSysv_abi_cdecl; sym_kVectorcall; sym_kVarargs; sym_kWinapi;
   sym_kAlias; sym_kCase; sym_kClass; sym_kConst; sym_kConstructor; sym_kDestructor; sym_kEnd;
   sym_kFunction; sym_kInline; sym_kProcedure; sym_kProperty; sym_kResourcestring;
   sym_kThreadvar; sym_kType; sym_kVar]].

(** State 2419. *)
Definition ts_parse_table_2419 : parse_row :=
  [STATE 2887 [sym__ppIf]; STATE 2734 [sym__procAttributeNoExt];
   STATE 2735 [sym__procAttributesPp]; STATE 15193 [sym_procAttribute];
   STATE 2417 [aux_sym__declProc_repeat1]; ACTIONS 14447 [anon_sym_LBRACK];
   ACTIONS 6141 [aux_sym_ppUsesBlock_token1]; ACTIONS 3 [sym__space];
   ACTIONS 5 [sym_ppDirective]; ACTIONS 3 [sym_comment]; ACTIONS 1016 [sym_kDefault;
   sym_kNodefault]; ACTIONS 11641 [sym_kDispId]; ACTIONS 6134 [sym_kGeneric; sym_kOperator];
   ACTIONS 11643 [sym_kPublic]; ACTIONS 1016 [sym_kStatic; sym_kVirtual; sym_kAbstract;
   sym_kDynamic; sym_kOverride; sym_kOverload; sym_kReintroduce; sym_kStdcall; sym_kCdecl;
   sym_kCppdecl; sym_kPascal; sym_kRegister; sym_kMwpascal]; ACTIONS 11645 [sym_kMessage];
   ACTIONS 11647 [sym_kDeprecated]; ACTIONS 1016 [sym_kExperimental; sym_kPlatform;
   sym_kUnimplemented; sym_kCvar]; ACTIONS 11649 [sym_kExport]; ACTIONS 1016 [sym_kFar;
   sym_kNear; sym_kSafecall; sym_kAssembler; sym_kNostackframe; sym_kInterrupt; sym_kNoreturn;
   sym_kIocheck; sym_kLocal; sym_kHardfloat; sym_kSoftfloat; sym_kMs_abi_default;
   sym_kMs_abi_cdecl; sym_kSaveregisters; sym_kSysv_abi_default; sym_kSysv_abi_cdecl;
   sym_kVectorcall; sym_kVarargs; sym_kWinapi]; ACTIONS 11651 [sym_kAlias];
   ACTIONS 6134 [sym_kAsm; sym_kBegin; sym_kClass; sym_kConst; sym_kConstructor; sym_kDestructor;
   sym_kExports; sym_kFunction]; ACTIONS 1016 [sym_kInline]; ACTIONS 6134 [sym_kLabel;
   sym_kProcedure; sym_kResourcestring; sym_kThreadvar; sym_kType; sym_kUses; sym_kVar]].

(** State 2420. *)
Definition ts_parse_table_2420 : parse_row :=
  [STATE 2887 [sym__ppIf]; STATE 2734 [sym__procAttributeNoExt];
   STATE 2735 [sym__procAttributesPp]; STATE 15193 [sym_procAttribute];
   STATE 2406 [aux_sym__declProc_repeat1]; ACTIONS 14450 [anon_sym_LBRACK];
   ACTIONS 6256 [aux_sym_ppUsesBlock_token1]; ACTIONS 3 [sym__space];
   ACTIONS 5 [sym_ppDirective]; ACTIONS 3 [sym_comment]; ACTIONS 1016 [sym_kDefault;
   sym_kNodefault]; ACTIONS 11641 [sym_kDispId]; ACTIONS 6249 [sym_kGeneric; sym_kOperator];
   ACTIONS 11643 [sym_kPublic]; ACTIONS 1016 [sym_kStatic; sym_kVirtual; sym_kAbstract;
   sym_kDynamic; sym_kOverride; sym_kOverload; sym_kReintroduce; sym_kStdcall; sym_kCdecl;
   sym_kCppdecl; sym_kPascal; sym_kRegister; sym_kMwpascal]; ACTIONS 11645 [sym_kMessage];
   ACTIONS 11647 [sym_kDeprecated]; ACTIONS 1016 [sym_kExperimental; sym_kPlatform;
   sym_kUnimplemented; sym_kCvar]; ACTIONS 11649 [sym_kExport]; ACTIONS 1016 [sym_kFar;
   sym_kNear; sym_kSafecall; sym_kAssembler; sym_kNostackframe; sym_kInterrupt; sym_kNoreturn;
   sym_kIocheck; sym_kLocal; sym_kHardfloat; sym_kSoftfloat; sym_kMs_abi_default;
   sym_kMs_abi_cdecl; sym_kSaveregisters; sym_kSysv_abi_default; sym_kSysv_abi_cdecl;
   sym_kVectorcall; sym_kVarargs; sym_kWinapi]; ACTIONS 11651 [sym_kAlias];
   ACTIONS 6249 [sym_kAsm; sym_kBegin; sym_kClass; sym_kConst; sym_kConstructor; sym_kDestructor;
   sym_kExports; sym_kFunction]; ACTIONS 1016 [sym_kInline]; ACTIONS 6249 [sym_kLabel;
   sym_kProcedure; sym_kResourcestring; sym_kThreadvar; sym_kType; sym_kUses; sym_kVar]].

(** State 2421. *)
Definition ts_parse_table_2421 : parse_row :=
  [STATE 2887 [sym__ppIf]; STATE 2734 [sym__procAttributeNoExt];
   STATE 2735 [sym__procAttributesPp]; STATE 15193 [sym_procAttribute];
   STATE 2417 [aux_sym__declProc_repeat1]; ACTIONS 14453 [anon_sym_LBRACK];
   ACTIONS 6294 [aux_sym_ppUsesBlock_token1]; ACTIONS 3 [sym__space];
   ACTIONS 5 [sym_ppDirective]; ACTIONS 3 [sym_comment]; ACTIONS 1016 [sym_kDefault;
   sym_kNodefault]; ACTIONS 11641 [sym_kDispId]; ACTIONS 6287 [sym_kGeneric; sym_kOperator];
   ACTIONS 11643 [sym_kPublic]; ACTIONS 1016 [sym_kStatic; sym_kVirtual; sym_kAbstract;
   sym_kDynamic; sym_kOverride; sym_kOverload; sym_kReintroduce; sym_kStdcall; sym_kCdecl;
   sym_kCppdecl; sym_kPascal; sym_kRegister; sym_kMwpascal]; ACTIONS 11645 [sym_kMessage];
   ACTIONS 11647 [sym_kDeprecated]; ACTIONS 1016 [sym_kExperimental; sym_kPlatform;
   sym_kUnimplemented; sym_kCvar]; ACTIONS 11649 [sym_kExport]; ACTIONS 1016 [sym_kFar;
   sym_kNear; sym_kSafecall; sym_kAssembler; sym_kNostackframe; sym_kInterrupt; sym_kNoreturn;
   sym_kIocheck; sym_kLocal; sym_kHardfloat; sym_kSoftfloat; sym_kMs_abi_default;
   sym_kMs_abi_cdecl; sym_kSaveregisters; sym_kSysv_abi_default; sym_kSysv_abi_cdecl;
   sym_kVectorcall; sym_kVarargs; sym_kWinapi]; ACTIONS 11651 [sym_kAlias];
   ACTIONS 6287 [sym_kAsm; sym_kBegin; sym_kClass; sym_kConst; sym_kConstructor; sym_kDestructor;
   sym_kExports; sym_kFunction]; ACTIONS 1016 [sym_kInline]; ACTIONS 6287 [sym_kLabel;
   sym_kProcedure; sym_kResourcestring; sym_kThreadvar; sym_kType; sym_kUses; sym_kVar]].

(** State 2422. *)
Definition ts_parse_table_2422 : parse_row :=
  [STATE 2887 [sym__ppIf]; STATE 2734 [sym__procAttributeNoExt];
   STATE 2735 [sym__procAttributesPp]; STATE 15193 [sym_procAttribute];
   STATE 2407 [aux_sym__declProc_repeat1]; ACTIONS 14456 [anon_sym_LBRACK];
   ACTIONS 5346 [aux_sym_ppUsesBlock_token1]; ACTIONS 3 [sym__space];
   ACTIONS 5 [sym_ppDirective]; ACTIONS 3 [sym_comment]; ACTIONS 1016 [sym_kDefault;
   sym_kNodefault]; ACTIONS 11641 [sym_kDispId]; ACTIONS 5339 [sym_kGeneric; sym_kOperator];
   ACTIONS 11643 [sym_kPublic]; ACTIONS 1016 [sym_kStatic; sym_kVirtual; sym_kAbstract;
   sym_kDynamic; sym_kOverride; sym_kOverload; sym_kReintroduce; sym_kStdcall; sym_kCdecl;
   sym_kCppdecl; sym_kPascal; sym_kRegister; sym_kMwpascal]; ACTIONS 11645 [sym_kMessage];
   ACTIONS 11647 [sym_kDeprecated]; ACTIONS 1016 [sym_kExperimental; sym_kPlatform;
   sym_kUnimplemented; sym_kCvar]; ACTIONS 11649 [sym_kExport]; ACTIONS 1016 [sym_kFar;
   sym_kNear; sym_kSafecall; sym_kAssembler; sym_kNostackframe; sym_kInterrupt; sym_kNoreturn;
   sym_kIocheck; sym_kLocal; sym_kHardfloat; sym_kSoftfloat; sym_kMs_abi_default;
   sym_kMs_abi_cdecl; sym_kSaveregisters; sym_kSysv_abi_default; sym_kSysv_abi_cdecl;
   sym_kVectorcall; sym_kVarargs; sym_kWinapi]; ACTIONS 11651 [sym_kAlias];
   ACTIONS 5339 [sym_kAsm; sym_kBegin; sym_kClass; sym_kConst; sym_kConstructor; sym_kDestructor;
   sym_kExports; sym_kFunction]; ACTIONS 1016 [sym_kInline]; ACTIONS 5339 [sym_kLabel;
   sym_kProcedure; sym_kResourcestring; sym_kThreadvar; sym_kType; sym_kUses; sym_kVar]].

(** State 2423. *)
Definition ts_parse_table_2423 : parse_row :=
  [STATE 2887 [sym__ppIf]; STATE 2734 [sym__procAttributeNoExt];
   STATE 2735 [sym__procAttributesPp]; STATE 15193 [sym_procAttribute];
   STATE 2462 [aux_sym__declProc_repeat1]; ACTIONS 14459 [anon_sym_LBRACK];
   ACTIONS 3825 [aux_sym_ppUsesBlock_token1]; ACTIONS 3 [sym__space];
   ACTIONS 5 [sym_ppDirective]; ACTIONS 3 [sym_comment]; ACTIONS 1016 [sym_kDefault;
   sym_kNodefault]; ACTIONS 11641 [sym_kDispId]; ACTIONS 3818 [sym_kGeneric; sym_kOperator];
   ACTIONS 11643 [sym_kPublic]; ACTIONS 1016 [sym_kStatic; sym_kVirtual; sym_kAbstract;
   sym_kDynamic; sym_kOverride; sym_kOverload; sym_kReintroduce; sym_kStdcall; sym_kCdecl;
   sym_kCppdecl; sym_kPascal; sym_kRegister; sym_kMwpascal]; ACTIONS 11645 [sym_kMessage];
   ACTIONS 11647 [sym_kDeprecated]; ACTIONS 1016 [sym_kExperimental; sym_kPlatform;
   sym_kUnimplemented; sym_kCvar]; ACTIONS 11649 [sym_kExport]; ACTIONS 1016 [sym_kFar;
   sym_kNear; sym_kSafecall; sym_kAssembler; sym_kNostackframe; sym_kInterrupt; sym_kNoreturn;
   sym_kIocheck; sym_kLocal; sym_kHardfloat; sym_kSoftfloat; sym_kMs_abi_default;
   sym_kMs_abi_cdecl; sym_kSaveregisters; sym_kSysv_abi_default; sym_kSysv_abi_cdecl;
   sym_kVectorcall; sym_kVarargs; sym_kWinapi]; ACTIONS 11651 [sym_kAlias];
   ACTIONS 3818 [sym_kAsm; sym_kBegin; sym_kClass; sym_kConst; sym_kConstructor; sym_kDestructor;
   sym_kExports; sym_kFunction]; ACTIONS 1016 [sym_kInline]; ACTIONS 3818 [sym_kLabel;
   sym_kProcedure; sym_kResourcestring; sym_kThreadvar; sym_kType; sym_kUses; sym_kVar]].

(** State 2424. *)
Definition ts_parse_table_2424 : parse_row :=
  [STATE 2887 [sym__ppIf]; STATE 2734 [sym__procAttributeNoExt];
   STATE 2735 [sym__procAttributesPp]; STATE 15193 [sym_procAttribute];
   STATE 2417 [aux_sym__declProc_repeat1]; ACTIONS 14462 [anon_sym_LBRACK];
   ACTIONS 4213 [aux_sym_ppUsesBlock_token1]; ACTIONS 3 [sym__space];
   ACTIONS 5 [sym_ppDirective]; ACTIONS 3 [sym_comment]; ACTIONS 1016 [sym_kDefault;
   sym_kNodefault]; ACTIONS 11641 [sym_kDispId]; ACTIONS 4206 [sym_kGeneric; sym_kOperator];
   ACTIONS 11643 [sym_kPublic]; ACTIONS 1016 [sym_kStatic; sym_kVirtual; sym_kAbstract;
   sym_kDynamic; sym_kOverride; sym_kOverload; sym_kReintroduce; sym_kStdcall; sym_kCdecl;
   sym_kCppdecl; sym_kPascal; sym_kRegister; sym_kMwpascal]; ACTIONS 11645 [sym_kMessage];
   ACTIONS 11647 [sym_kDeprecated]; ACTIONS 1016 [sym_kExperimental; sym_kPlatform;
   sym_kUnimplemented; sym_kCvar]; ACTIONS 11649 [sym_kExport]; ACTIONS 1016 [sym_kFar;
   sym_kNear; sym_kSafecall; sym_kAssembler; sym_kNostackframe; sym_kInterrupt; sym_kNoreturn;
   sym_kIocheck; sym_kLocal; sym_kHardfloat; sym_kSoftfloat; sym_kMs_abi_default;
   sym_kMs_abi_cdecl; sym_kSaveregisters; sym_kSysv_abi_default; sym_kSysv_abi_cdecl;
   sym_kVectorcall; sym_kVarargs; sym_kWinapi]; ACTIONS 11651 [sym_kAlias];
   ACTIONS 4206 [sym_kAsm; sym_kBegin; sym_kClass; sym_kConst; sym_kConstructor; sym_kDestructor;
   sym_kExports; sym_kFunction]; ACTIONS 1016 [sym_kInline]; ACTIONS 4206 [sym_kLabel;
   sym_kProcedure; sym_kResourcestring; sym_kThreadvar; sym_kType; sym_kUses; sym_kVar]].

(** State 2425. *)
Definition ts_parse_table_2425 : parse_row :=
  [STATE 2887 [sym__ppIf]; STATE 2734 [sym__procAttributeNoExt];
   STATE 2735 [sym__procAttributesPp]; STATE 15193 [sym_procAttribute];
   STATE 2466 [aux_sym__declProc_repeat1]; ACTIONS 14465 [anon_sym_LBRACK];
   ACTIONS 4272 [aux_sym_ppUsesBlock_token1]; ACTIONS 3 [sym__space];
   ACTIONS 5 [sym_ppDirective]; ACTIONS 3 [sym_comment]; ACTIONS 1016 [sym_kDefault;
   sym_kNodefault]; ACTIONS 11641 [sym_kDispId]; ACTIONS 4265 [sym_kGeneric; sym_kOperator];
   ACTIONS 11643 [sym_kPublic]; ACTIONS 1016 [sym_kStatic; sym_kVirtual; sym_kAbstract;
   sym_kDynamic; sym_kOverride; sym_kOverload; sym_kReintroduce; sym_kStdcall; sym_kCdecl;
   sym_kCppdecl; sym_kPascal; sym_kRegister; sym_kMwpascal]; ACTIONS 11645 [sym_kMessage];
   ACTIONS 11647 [sym_kDeprecated]; ACTIONS 1016 [sym_kExperimental; sym_kPlatform;
   sym_kUnimplemented; sym_kCvar]; ACTIONS 11649 [sym_kExport]; ACTIONS 1016 [sym_kFar;
   sym_kNear; sym_kSafecall; sym_kAssembler; sym_kNostackframe; sym_kInterrupt; sym_kNoreturn;
   sym_kIocheck; sym_kLocal; sym_kHardfloat; sym_kSoftfloat; sym_kMs_abi_default;
   sym_kMs_abi_cdecl; sym_kSaveregisters; sym_kSysv_abi_default; sym_kSysv_abi_cdecl;
   sym_kVectorcall; sym_kVarargs; sym_kWinapi]; ACTIONS 11651 [sym_kAlias];
   ACTIONS 4265 [sym_kAsm; sym_kBegin; sym_kClass; sym_kConst; sym_kConstructor; sym_kDestructor;
   sym_kExports; sym_kFunction]; ACTIONS 1016 [sym_kInline]; ACTIONS 4265 [sym_kLabel;
   sym_kProcedure; sym_kResourcestring; sym_kThreadvar; sym_kType; sym_kUses; sym_kVar]].

(** State 2426. *)
Definition ts_parse_table_2426 : parse_row :=
  [STATE 2887 [sym__ppIf]; STATE 2734 [sym__procAttributeNoExt];
   STATE 2735 [sym__procAttributesPp]; STATE 15193 [sym_procAttribute];
   STATE 2417 [aux_sym__declProc_repeat1]; ACTIONS 14468 [anon_sym_LBRACK];
   ACTIONS 6712 [aux_sym_ppUsesBlock_token1]; ACTIONS 3 [sym__space];
   ACTIONS 5 [sym_ppDirective]; ACTIONS 3 [sym_comment]; ACTIONS 1016 [sym_kDefault;
   sym_kNodefault]; ACTIONS 11641 [sym_kDispId]; ACTIONS 6705 [sym_kGeneric; sym_kOperator];
   ACTIONS 11643 [sym_kPublic]; ACTIONS 1016 [sym_kStatic; sym_kVirtual; sym_kAbstract;
   sym_kDynamic; sym_kOverride; sym_kOverload; sym_kReintroduce; sym_kStdcall; sym_kCdecl;
   sym_kCppdecl; sym_kPascal; sym_kRegister; sym_kMwpascal]; ACTIONS 11645 [sym_kMessage];
   ACTIONS 11647 [sym_kDeprecated]; ACTIONS 1016 [sym_kExperimental; sym_kPlatform;
   sym_kUnimplemented; sym_kCvar]; ACTIONS 11649 [sym_kExport]; ACTIONS 1016 [sym_kFar;
   sym_kNear; sym_kSafecall; sym_kAssembler; sym_kNostackframe; sym_kInterrupt; sym_kNoreturn;
   sym_kIocheck; sym_kLocal; sym_kHardfloat; sym_kSoftfloat; sym_kMs_abi_default;
   sym_kMs_abi_cdecl; sym_kSaveregisters; sym_kSysv_abi_default; sym_kSysv_abi_cdecl;
   sym_kVectorcall; sym_kVarargs; sym_kWinapi]; ACTIONS 11651 [sym_kAlias];
   ACTIONS 6705 [sym_kAsm; sym_kBegin; sym_kClass; sym_kConst; sym_kConstructor; sym_kDestructor;
   sym_kExports; sym_kFunction]; ACTIONS 1016 [sym_kInline]; ACTIONS 6705 [sym_kLabel;
   sym_kProcedure; sym_kResourcestring; sym_kThreadvar; sym_kType; sym_kUses; sym_kVar]].

(** State 2427. *)
Definition ts_parse_table_2427 : parse_row :=
  [STATE 2887 [sym__ppIf]; STATE 2734 [sym__procAttributeNoExt];
   STATE 2735 [sym__procAttributesPp]; STATE 15193 [sym_procAttribute];
   STATE 2417 [aux_sym__declProc_repeat1]; ACTIONS 14471 [anon_sym_LBRACK];
   ACTIONS 6498 [aux_sym_ppUsesBlock_token1]; ACTIONS 3 [sym__space];
   ACTIONS 5 [sym_ppDirective]; ACTIONS 3 [sym_comment]; ACTIONS 1016 [sym_kDefault;
   sym_kNodefault]; ACTIONS 11641 [sym_kDispId]; ACTIONS 6491 [sym_kGeneric; sym_kOperator];
   ACTIONS 11643 [sym_kPublic]; ACTIONS 1016 [sym_kStatic; sym_kVirtual; sym_kAbstract;
   sym_kDynamic; sym_kOverride; sym_kOverload; sym_kReintroduce; sym_kStdcall; sym_kCdecl;
   sym_kCppdecl; sym_kPascal; sym_kRegister; sym_kMwpascal]; ACTIONS 11645 [sym_kMessage];
   ACTIONS 11647 [sym_kDeprecated]; ACTIONS 1016 [sym_kExperimental; sym_kPlatform;
   sym_kUnimplemented; sym_kCvar]; ACTIONS 11649 [sym_kExport]; ACTIONS 1016 [sym_kFar;
   sym_kNear; sym_kSafecall; sym_kAssembler; sym_kNostackframe; sym_kInterrupt; sym_kNoreturn;
   sym_kIocheck; sym_kLocal; sym_kHardfloat; sym_kSoftfloat; sym_kMs_abi_default;
   sym_kMs_abi_cdecl; sym_kSaveregisters; sym_kSysv_abi_default; sym_kSysv_abi_cdecl;
   sym_kVectorcall; sym_kVarargs; sym_kWinapi]; ACTIONS 11651 [sym_kAlias];
   ACTIONS 6491 [sym_kAsm; sym_kBegin; sym_kClass; sym_kConst; sym_kConstructor; sym_kDestructor;
   sym_kExports; sym_kFunction]; ACTIONS 1016 [sym_kInline]; ACTIONS 6491 [sym_kLabel;
   sym_kProcedure; sym_kResourcestring; sym_kThreadvar; sym_kType; sym_kUses; sym_kVar]].

(** State 2428. *)
Definition ts_parse_table_2428 : parse_row :=
  [STATE 2887 [sym__ppIf]; STATE 2734 [sym__procAttributeNoExt];
   STATE 2735 [sym__procAttributesPp]; STATE 15193 [sym_procAttribute];
   STATE 2410 [aux_sym__declProc_repeat1]; ACTIONS 14474 [anon_sym_LBRACK];
   ACTIONS 7286 [aux_sym_ppUsesBlock_token1]; ACTIONS 3 [sym__space];
   ACTIONS 5 [sym_ppDirective]; ACTIONS 3 [sym_comment]; ACTIONS 1016 [sym_kDefault;
   sym_kNodefault]; ACTIONS 11641 [sym_kDispId]; ACTIONS 7279 [sym_kGeneric; sym_kOperator];
   ACTIONS 11643 [sym_kPublic]; ACTIONS 1016 [sym_kStatic; sym_kVirtual; sym_kAbstract;
   sym_kDynamic; sym_kOverride; sym_kOverload; sym_kReintroduce; sym_kStdcall; sym_kCdecl;
   sym_kCppdecl; sym_kPascal; sym_kRegister; sym_kMwpascal]; ACTIONS 11645 [sym_kMessage];
   ACTIONS 11647 [sym_kDeprecated]; ACTIONS 1016 [sym_kExperimental; sym_kPlatform;
   sym_kUnimplemented; sym_kCvar]; ACTIONS 11649 [sym_kExport]; ACTIONS 1016 [sym_kFar;
   sym_kNear; sym_kSafecall; sym_kAssembler; sym_kNostackframe; sym_kInterrupt; sym_kNoreturn;
   sym_kIocheck; sym_kLocal; sym_kHardfloat; sym_kSoftfloat; sym_kMs_abi_default;
   sym_kMs_abi_cdecl; sym_kSaveregisters; sym_kSysv_abi_default; sym_kSysv_abi_cdecl;
   sym_kVectorcall; sym_kVarargs; sym_kWinapi]; ACTIONS 11651 [sym_kAlias];
   ACTIONS 7279 [sym_kAsm; sym_kBegin; sym_kClass; sym_kConst; sym_kConstructor; sym_kDestructor;
   sym_kExports; sym_kFunction]; ACTIONS 1016 [sym_kInline]; ACTIONS 7279 [sym_kLabel;
   sym_kProcedure; sym_kResourcestring; sym_kThreadvar; sym_kType; sym_kUses; sym_kVar]].

(** State 2429. *)
Definition ts_parse_table_2429 : parse_row :=
  [STATE 2887 [sym__ppIf]; STATE 2734 [sym__procAttributeNoExt];
   STATE 2735 [sym__procAttributesPp]; STATE 15193 [sym_procAttribute];
   STATE 2417 [aux_sym__declProc_repeat1]; ACTIONS 14477 [anon_sym_LBRACK];
   ACTIONS 4310 [aux_sym_ppUsesBlock_token1]; ACTIONS 3 [sym__space];
   ACTIONS 5 [sym_ppDirective]; ACTIONS 3 [sym_comment]; ACTIONS 1016 [sym_kDefault;
   sym_kNodefault]; ACTIONS 11641 [sym_kDispId]; ACTIONS 4303 [sym_kGeneric; sym_kOperator];
   ACTIONS 11643 [sym_kPublic]; ACTIONS 1016 [sym_kStatic; sym_kVirtual; sym_kAbstract;
   sym_kDynamic; sym_kOverride; sym_kOverload; sym_kReintroduce; sym_kStdcall; sym_kCdecl;
   sym_kCppdecl; sym_kPascal; sym_kRegister; sym_kMwpascal]; ACTIONS 11645 [sym_kMessage];
   ACTIONS 11647 [sym_kDeprecated]; ACTIONS 1016 [sym_kExperimental; sym_kPlatform;
   sym_kUnimplemented; sym_kCvar]; ACTIONS 11649 [sym_kExport]; ACTIONS 1016 [sym_kFar;
   sym_kNear; sym_kSafecall; sym_kAssembler; sym_kNostackframe; sym_kInterrupt; sym_kNoreturn;
   sym_kIocheck; sym_kLocal; sym_kHardfloat; sym_kSoftfloat; sym_kMs_abi_default;
   sym_kMs_abi_cdecl; sym_kSaveregisters; sym_kSysv_abi_default; sym_kSysv_abi_cdecl;
   sym_kVectorcall; sym_kVarargs; sym_kWinapi]; ACTIONS 11651 [sym_kAlias];
   ACTIONS 4303 [sym_kAsm; sym_kBegin; sym_kClass; sym_kConst; sym_kConstructor; sym_kDestructor;
   sym_kExports; sym_kFunction]; ACTIONS 1016 [sym_kInline]; ACTIONS 4303 [sym_kLabel;
   sym_kProcedure; sym_kResourcestring; sym_kThreadvar; sym_kType; sym_kUses; sym_kVar]].

(** State 2430. *)
Definition ts_parse_table_2430 : parse_row :=
  [STATE 2887 [sym__ppIf]; STATE 2734 [sym__procAttributeNoExt];
   STATE 2735 [sym__procAttributesPp]; STATE 15193 [sym_procAttribute];
   STATE 2413 [aux_sym__declProc_repeat1]; ACTIONS 14480 [anon_sym_LBRACK];
   ACTIONS 4796 [aux_sym_ppUsesBlock_token1]; ACTIONS 3 [sym__space];
   ACTIONS 5 [sym_ppDirective]; ACTIONS 3 [sym_comment]; ACTIONS 1016 [sym_kDefault;
   sym_kNodefault]; ACTIONS 11641 [sym_kDispId]; ACTIONS 4789 [sym_kGeneric; sym_kOperator];
   ACTIONS 11643 [sym_kPublic]; ACTIONS 1016 [sym_kStatic; sym_kVirtual; sym_kAbstract;
   sym_kDynamic; sym_kOverride; sym_kOverload; sym_kReintroduce; sym_kStdcall; sym_kCdecl;
   sym_kCppdecl; sym_kPascal; sym_kRegister; sym_kMwpascal]; ACTIONS 11645 [sym_kMessage];
   ACTIONS 11647 [sym_kDeprecated]; ACTIONS 1016 [sym_kExperimental; sym_kPlatform;
   sym_kUnimplemented; sym_kCvar]; ACTIONS 11649 [sym_kExport]; ACTIONS 1016 [sym_kFar;
   sym_kNear; sym_kSafecall; sym_kAssembler; sym_kNostackframe; sym_kInterrupt; sym_kNoreturn;
   sym_kIocheck; sym_kLocal; sym_kHardfloat; sym_kSoftfloat; sym_kMs_abi_default;
   sym_kMs_abi_cdecl; sym_kSaveregisters; sym_kSysv_abi_default; sym_kSysv_abi_cdecl;
   sym_kVectorcall; sym_kVarargs; sym_kWinapi]; ACTIONS 11651 [sym_kAlias];
   ACTIONS 4789 [sym_kAsm; sym_kBegin; sym_kClass; sym_kConst; sym_kConstructor; sym_kDestructor;
   sym_kExports; sym_kFunction]; ACTIONS 1016 [sym_kInline]; ACTIONS 4789 [sym_kLabel;
   sym_kProcedure; sym_kResourcestring; sym_kThreadvar; sym_kType; sym_kUses; sym_kVar]].

(** State 2431. *)
Definition ts_parse_table_2431 : parse_row :=
  [ACTIONS 10796 [anon_sym_LBRACK; aux_sym_ppUsesBlock_token1]; ACTIONS 3 [sym__space];
   ACTIONS 5 [sym_ppDirective]; ACTIONS 3 [sym_comment]; ACTIONS 10796 [sym_identifier;
   sym_kDefault; sym_kNodefault; sym_kDispId; sym_kGeneric; sym_kOperator; sym_kPublic;
   sym_kStatic; sym_kVirtual; sym_kAbstract; sym_kDynamic; sym_kOverride; sym_kOverload;
   sym_kReintroduce; sym_kStdcall; sym_kCdecl; sym_kCppdecl; sym_kPascal; sym_kRegister;
   sym_kMwpascal; sym_kMessage; sym_kDeprecated; sym_kExperimental; sym_kPlatform;
   sym_kUnimplemented; sym_kCvar; sym_kExport; sym_kFar; sym_kNear; sym_kSafecall;
   sym_kAssembler; sym_kNostackframe; sym_kInterrupt; sym_kNoreturn; sym_kIocheck; sym_kLocal;
   sym_kHardfloat; sym_kSoftfloat; sym_kMs_abi_default; sym_kMs_abi_cdecl; sym_kSaveregisters;
   sym_kSysv_abi_default; sym_kSysv_abi_cdecl; sym_kVectorcall; sym_kVarargs; sym_kWinapi;
   sym_kAlias; sym_kBegin; sym_kClass; sym_kConst; sym_kConstructor; sym_kDestructor; sym_kEnd;
   sym_kExports; sym_kFinalization; sym_kFunction; sym_kImplementation; sym_kInitialization;
   sym_kInline; sym_kInterface; sym_kLabel; sym_kProcedure; sym_kResourcestring; sym_kThreadvar;
   sym_kType; sym_kUses; sym_kVar]].

(** State 2432. *)
Definition ts_parse_table_2432 : parse_row :=
  [STATE 2887 [sym__ppIf]; STATE 2734 [sym__procAttributeNoExt];
   STATE 2735 [sym__procAttributesPp]; STATE 15193 [sym_procAttribute];
   STATE 2424 [aux_sym__declProc_repeat1]; ACTIONS 14483 [anon_sym_LBRACK];
   ACTIONS 7066 [aux_sym_ppUsesBlock_token1]; ACTIONS 3 [sym__space];
   ACTIONS 5 [sym_ppDirective]; ACTIONS 3 [sym_comment]; ACTIONS 1016 [sym_kDefault;
   sym_kNodefault]; ACTIONS 11641 [sym_kDispId]; ACTIONS 7059 [sym_kGeneric; sym_kOperator];
   ACTIONS 11643 [sym_kPublic]; ACTIONS 1016 [sym_kStatic; sym_kVirtual; sym_kAbstract;
   sym_kDynamic; sym_kOverride; sym_kOverload; sym_kReintroduce; sym_kStdcall; sym_kCdecl;
   sym_kCppdecl; sym_kPascal; sym_kRegister; sym_kMwpascal]; ACTIONS 11645 [sym_kMessage];
   ACTIONS 11647 [sym_kDeprecated]; ACTIONS 1016 [sym_kExperimental; sym_kPlatform;
   sym_kUnimplemented; sym_kCvar]; ACTIONS 11649 [sym_kExport]; ACTIONS 1016 [sym_kFar;
   sym_kNear; sym_kSafecall; sym_kAssembler; sym_kNostackframe; sym_kInterrupt; sym_kNoreturn;
   sym_kIocheck; sym_kLocal; sym_kHardfloat; sym_kSoftfloat; sym_kMs_abi_default;
   sym_kMs_abi_cdecl; sym_kSaveregisters; sym_kSysv_abi_default; sym_kSysv_abi_cdecl;
   sym_kVectorcall; sym_kVarargs; sym_kWinapi]; ACTIONS 11651 [sym_kAlias];
   ACTIONS 7059 [sym_kAsm; sym_kBegin; sym_kClass; sym_kConst; sym_kConstructor; sym_kDestructor;
   sym_kExports; sym_kFunction]; ACTIONS 1016 [sym_kInline]; ACTIONS 7059 [sym_kLabel;
   sym_kProcedure; sym_kResourcestring; sym_kThreadvar; sym_kType; sym_kUses; sym_kVar]].

(** State 2433. *)
Definition ts_parse_table_2433 : parse_row :=
  [STATE 2887 [sym__ppIf]; STATE 2734 [sym__procAttributeNoExt];
   STATE 2735 [sym__procAttributesPp]; STATE 15193 [sym_procAttribute];
   STATE 2429 [aux_sym__declProc_repeat1]; ACTIONS 14486 [anon_sym_LBRACK];
   ACTIONS 7212 [aux_sym_ppUsesBlock_token1]; ACTIONS 3 [sym__space];
   ACTIONS 5 [sym_ppDirective]; ACTIONS 3 [sym_comment]; ACTIONS 1016 [sym_kDefault;
   sym_kNodefault]; ACTIONS 11641 [sym_kDispId]; ACTIONS 7205 [sym_kGeneric; sym_kOperator];
   ACTIONS 11643 [sym_kPublic]; ACTIONS 1016 [sym_kStatic; sym_kVirtual; sym_kAbstract;
   sym_kDynamic; sym_kOverride; sym_kOverload; sym_kReintroduce; sym_kStdcall; sym_kCdecl;
   sym_kCppdecl; sym_kPascal; sym_kRegister; sym_kMwpascal]; ACTIONS 11645 [sym_kMessage];
   ACTIONS 11647 [sym_kDeprecated]; ACTIONS 1016 [sym_kExperimental; sym_kPlatform;
   sym_kUnimplemented; sym_kCvar]; ACTIONS 11649 [sym_kExport]; ACTIONS 1016 [sym_kFar;
   sym_kNear; sym_kSafecall; sym_kAssembler; sym_kNostackframe; sym_kInterrupt; sym_kNoreturn;
   sym_kIocheck; sym_kLocal; sym_kHardfloat; sym_kSoftfloat; sym_kMs_abi_default;
   sym_kMs_abi_cdecl; sym_kSaveregisters; sym_kSysv_abi_default; sym_kSysv_abi_cdecl;
   sym_kVectorcall; sym_kVarargs; sym_kWinapi]; ACTIONS 11651 [sym_kAlias];
   ACTIONS 7205 [sym_kAsm; sym_kBegin; sym_kClass; sym_kConst; sym_kConstructor; sym_kDestructor;
   sym_kExports; sym_kFunction]; ACTIONS 1016 [sym_kInline]; ACTIONS 7205 [sym_kLabel;
   sym_kProcedure; sym_kResourcestring; sym_kThreadvar; sym_kType; sym_kUses; sym_kVar]].

(** State 2434. *)
Definition ts_parse_table_2434 : parse_row :=
  [ACTIONS 10796 [anon_sym_LBRACK; aux_sym_ppUsesBlock_token1]; ACTIONS 3 [sym__space];
   ACTIONS 5 [sym_ppDirective]; ACTIONS 3 [sym_comment]; ACTIONS 10796 [sym_identifier;
   sym_kDefault; sym_kNodefault; sym_kDispId; sym_kGeneric; sym_kOperator; sym_kPublic;
   sym_kStatic; sym_kVirtual; sym_kAbstract; sym_kDynamic; sym_kOverride; sym_kOverload;
   sym_kReintroduce; sym_kStdcall; sym_kCdecl; sym_kCppdecl; sym_kPascal; sym_kRegister;
   sym_kMwpascal; sym_kMessage; sym_kDeprecated; sym_kExperimental; sym_kPlatform;
   sym_kUnimplemented; sym_kCvar; sym_kExport; sym_kFar; sym_kNear; sym_kSafecall;
   sym_kAssembler; sym_kNostackframe; sym_kInterrupt; sym_kNoreturn; sym_kIocheck; sym_kLocal;
   sym_kHardfloat; sym_kSoftfloat; sym_kMs_abi_default; sym_kMs_abi_cdecl; sym_kSaveregisters;
   sym_kSysv_abi_default; sym_kSysv_abi_cdecl; sym_kVectorcall; sym_kVarargs; sym_kWinapi;
   sym_kAlias; sym_kClass; sym_kConst; sym_kConstructor; sym_kDestructor; sym_kEnd; sym_kExports;
   sym_kFinalization; sym_kFunction; sym_kImplementation; sym_kInitialization; sym_kInline;
   sym_kInterface; sym_kLabel; sym_kProcedure; sym_kProperty; sym_kResourcestring;
   sym_kThreadvar; sym_kType; sym_kUses; sym_kVar]].

(** State 2435. *)
Definition ts_parse_table_2435 : parse_row :=
  [STATE 2887 [sym__ppIf]; STATE 2734 [sym__procAttributeNoExt];
   STATE 2735 [sym__procAttributesPp]; STATE 15193 [sym_procAttribute];
   STATE 2357 [aux_sym__declProc_repeat1]; ACTIONS 14489 [anon_sym_LBRACK];
   ACTIONS 5004 [aux_sym_ppUsesBlock_token1]; ACTIONS 3 [sym__space];
   ACTIONS 5 [sym_ppDirective]; ACTIONS 3 [sym_comment]; ACTIONS 1016 [sym_kDefault;
   sym_kNodefault]; ACTIONS 11641 [sym_kDispId]; ACTIONS 4997 [sym_kGeneric; sym_kOperator];
   ACTIONS 11643 [sym_kPublic]; ACTIONS 1016 [sym_kStatic; sym_kVirtual; sym_kAbstract;
   sym_kDynamic; sym_kOverride; sym_kOverload; sym_kReintroduce; sym_kStdcall; sym_kCdecl;
   sym_kCppdecl; sym_kPascal; sym_kRegister; sym_kMwpascal]; ACTIONS 11645 [sym_kMessage];
   ACTIONS 11647 [sym_kDeprecated]; ACTIONS 1016 [sym_kExperimental; sym_kPlatform;
   sym_kUnimplemented; sym_kCvar]; ACTIONS 11649 [sym_kExport]; ACTIONS 1016 [sym_kFar;
   sym_kNear; sym_kSafecall; sym_kAssembler; sym_kNostackframe; sym_kInterrupt; sym_kNoreturn;
   sym_kIocheck; sym_kLocal; sym_kHardfloat; sym_kSoftfloat; sym_kMs_abi_default;
   sym_kMs_abi_cdecl; sym_kSaveregisters; sym_kSysv_abi_default; sym_kSysv_abi_cdecl;
   sym_kVectorcall; sym_kVarargs; sym_kWinapi]; ACTIONS 11651 [sym_kAlias];
   ACTIONS 4997 [sym_kAsm; sym_kBegin; sym_kClass; sym_kConst; sym_kConstructor; sym_kDestructor;
   sym_kExports; sym_kFunction]; ACTIONS 1016 [sym_kInline]; ACTIONS 4997 [sym_kLabel;
   sym_kProcedure; sym_kResourcestring; sym_kThreadvar; sym_kType; sym_kUses; sym_kVar]].

(** State 2436. *)
Definition ts_parse_table_2436 : parse_row :=
  [STATE 2887 [sym__ppIf]; STATE 2734 [sym__procAttributeNoExt];
   STATE 2735 [sym__procAttributesPp]; STATE 15193 [sym_procAttribute];
   STATE 2417 [aux_sym__declProc_repeat1]; ACTIONS 14492 [anon_sym_LBRACK];
   ACTIONS 5035 [aux_sym_ppUsesBlock_token1]; ACTIONS 3 [sym__space];
   ACTIONS 5 [sym_ppDirective]; ACTIONS 3 [sym_comment]; ACTIONS 1016 [sym_kDefault;
   sym_kNodefault]; ACTIONS 11641 [sym_kDispId]; ACTIONS 5028 [sym_kGeneric; sym_kOperator];
   ACTIONS 11643 [sym_kPublic]; ACTIONS 1016 [sym_kStatic; sym_kVirtual; sym_kAbstract;
   sym_kDynamic; sym_kOverride; sym_kOverload; sym_kReintroduce; sym_kStdcall; sym_kCdecl;
   sym_kCppdecl; sym_kPascal; sym_kRegister; sym_kMwpascal]; ACTIONS 11645 [sym_kMessage];
   ACTIONS 11647 [sym_kDeprecated]; ACTIONS 1016 [sym_kExperimental; sym_kPlatform;
   sym_kUnimplemented; sym_kCvar]; ACTIONS 11649 [sym_kExport]; ACTIONS 1016 [sym_kFar;
   sym_kNear; sym_kSafecall; sym_kAssembler; sym_kNostackframe; sym_kInterrupt; sym_kNoreturn;
   sym_kIocheck; sym_kLocal; sym_kHardfloat; sym_kSoftfloat; sym_kMs_abi_default;
   sym_kMs_abi_cdecl; sym_kSaveregisters; sym_kSysv_abi_default; sym_kSysv_abi_cdecl;
   sym_kVectorcall; sym_kVarargs; sym_kWinapi]; ACTIONS 11651 [sym_kAlias];
   ACTIONS 5028 [sym_kAsm; sym_kBegin; sym_kClass; sym_kConst; sym_kConstructor; sym_kDestructor;
   sym_kExports; sym_kFunction]; ACTIONS 1016 [sym_kInline]; ACTIONS 5028 [sym_kLabel;
   sym_kProcedure; sym_kResourcestring; sym_kThreadvar; sym_kType; sym_kUses; sym_kVar]].

(** State 2437. *)
Definition ts_parse_table_2437 : parse_row :=
  [STATE 2887 [sym__ppIf]; STATE 2734 [sym__procAttributeNoExt];
   STATE 2735 [sym__procAttributesPp]; STATE 15193 [sym_procAttribute];
   STATE 2371 [aux_sym__declProc_repeat1]; ACTIONS 14495 [anon_sym_LBRACK];
   ACTIONS 5082 [aux_sym_ppUsesBlock_token1]; ACTIONS 3 [sym__space];
   ACTIONS 5 [sym_ppDirective]; ACTIONS 3 [sym_comment]; ACTIONS 1016 [sym_kDefault;
   sym_kNodefault]; ACTIONS 11641 [sym_kDispId]; ACTIONS 5075 [sym_kGeneric; sym_kOperator];
   ACTIONS 11643 [sym_kPublic]; ACTIONS 1016 [sym_kStatic; sym_kVirtual; sym_kAbstract;
   sym_kDynamic; sym_kOverride; sym_kOverload; sym_kReintroduce; sym_kStdcall; sym_kCdecl;
   sym_kCppdecl; sym_kPascal; sym_kRegister; sym_kMwpascal]; ACTIONS 11645 [sym_kMessage];
   ACTIONS 11647 [sym_kDeprecated]; ACTIONS 1016 [sym_kExperimental; sym_kPlatform;
   sym_kUnimplemented; sym_kCvar]; ACTIONS 11649 [sym_kExport]; ACTIONS 1016 [sym_kFar;
   sym_kNear; sym_kSafecall; sym_kAssembler; sym_kNostackframe; sym_kInterrupt; sym_kNoreturn;
   sym_kIocheck; sym_kLocal; sym_kHardfloat; sym_kSoftfloat; sym_kMs_abi_default;
   sym_kMs_abi_cdecl; sym_kSaveregisters; sym_kSysv_abi_default; sym_kSysv_abi_cdecl;
   sym_kVectorcall; sym_kVarargs; sym_kWinapi]; ACTIONS 11651 [sym_kAlias];
   ACTIONS 5075 [sym_kAsm; sym_kBegin; sym_kClass; sym_kConst; sym_kConstructor; sym_kDestructor;
   sym_kExports; sym_kFunction]; ACTIONS 1016 [sym_kInline]; ACTIONS 5075 [sym_kLabel;
   sym_kProcedure; sym_kResourcestring; sym_kThreadvar; sym_kType; sym_kUses; sym_kVar]].

(** State 2438. *)
Definition ts_parse_table_2438 : parse_row :=
  [STATE 2887 [sym__ppIf]; STATE 2734 [sym__procAttributeNoExt];
   STATE 2735 [sym__procAttributesPp]; STATE 15193 [sym_procAttribute];
   STATE 2373 [aux_sym__declProc_repeat1]; ACTIONS 14498 [anon_sym_LBRACK];
   ACTIONS 5832 [aux_sym_ppUsesBlock_token1]; ACTIONS 3 [sym__space];
   ACTIONS 5 [sym_ppDirective]; ACTIONS 3 [sym_comment]; ACTIONS 1016 [sym_kDefault;
   sym_kNodefault]; ACTIONS 11641 [sym_kDispId]; ACTIONS 5825 [sym_kGeneric; sym_kOperator];
   ACTIONS 11643 [sym_kPublic]; ACTIONS 1016 [sym_kStatic; sym_kVirtual; sym_kAbstract;
   sym_kDynamic; sym_kOverride; sym_kOverload; sym_kReintroduce; sym_kStdcall; sym_kCdecl;
   sym_kCppdecl; sym_kPascal; sym_kRegister; sym_kMwpascal]; ACTIONS 11645 [sym_kMessage];
   ACTIONS 11647 [sym_kDeprecated]; ACTIONS 1016 [sym_kExperimental; sym_kPlatform;
   sym_kUnimplemented; sym_kCvar]; ACTIONS 11649 [sym_kExport]; ACTIONS 1016 [sym_kFar;
   sym_kNear; sym_kSafecall; sym_kAssembler; sym_kNostackframe; sym_kInterrupt; sym_kNoreturn;
   sym_kIocheck; sym_kLocal; sym_kHardfloat; sym_kSoftfloat; sym_kMs_abi_default;
   sym_kMs_abi_cdecl; sym_kSaveregisters; sym_kSysv_abi_default; sym_kSysv_abi_cdecl;
   sym_kVectorcall; sym_kVarargs; sym_kWinapi]; ACTIONS 11651 [sym_kAlias];
   ACTIONS 5825 [sym_kAsm; sym_kBegin; sym_kClass; sym_kConst; sym_kConstructor; sym_kDestructor;
   sym_kExports; sym_kFunction]; ACTIONS 1016 [sym_kInline]; ACTIONS 5825 [sym_kLabel;
   sym_kProcedure; sym_kResourcestring; sym_kThreadvar; sym_kType; sym_kUses; sym_kVar]].

(** State 2439. *)
Definition ts_parse_table_2439 : parse_row :=
  [ACTIONS 10566 [anon_sym_LBRACK; aux_sym_ppUsesBlock_token1]; ACTIONS 3 [sym__space];
   ACTIONS 5 [sym_ppDirective]; ACTIONS 3 [sym_comment]; ACTIONS 10566 [sym_identifier;
   sym_kDefault; sym_kNodefault; sym_kDispId; sym_kGeneric; sym_kOperator; sym_kPublished;
   sym_kPublic; sym_kProtected; sym_kPrivate; sym_kStrict; sym_kRequired; sym_kOptional;
   sym_kStatic; sym_kVirtual; sym_kAbstract; sym_kDynamic; sym_kOverride; sym_kOverload;
   sym_kReintroduce; sym_kStdcall; sym_kCdecl; sym_kCppdecl; sym_kPascal; sym_kRegister;
   sym_kMwpascal; sym_kMessage; sym_kDeprecated; sym_kExperimental; sym_kPlatform;
   sym_kUnimplemented; sym_kCvar; sym_kExport; sym_kFar; sym_kNear; sym_kSafecall;
   sym_kAssembler; sym_kNostackframe; sym_kInterrupt; sym_kNoreturn; sym_kIocheck; sym_kLocal;
   sym_kHardfloat; sym_kSoftfloat; sym_kMs_abi_default; sym_kMs_abi_cdecl; sym_kSaveregisters;
   sym_kSysv_abi_default; sym_kSysv_abi_cdecl; sym_kVectorcall; sym_kVarargs; sym_kWinapi;
   sym_kAlias; sym_kCase; sym_kClass; sym_kConst; sym_kConstructor; sym_kDestructor; sym_kEnd;
   sym_kFunction; sym_kInline; sym_kProcedure; sym_kProperty; sym_kResourcestring;
   sym_kThreadvar; sym_kType; sym_kVar]].

(** State 2440. *)
Definition ts_parse_table_2440 : parse_row :=
  [ACTIONS 10576 [anon_sym_LBRACK; aux_sym_ppUsesBlock_token1]; ACTIONS 3 [sym__space];
   ACTIONS 5 [sym_ppDirective]; ACTIONS 3 [sym_comment]; ACTIONS 10576 [sym_identifier;
   sym_kDefault; sym_kNodefault; sym_kDispId; sym_kGeneric; sym_kOperator; sym_kPublished;
   sym_kPublic; sym_kProtected; sym_kPrivate; sym_kStrict; sym_kRequired; sym_kOptional;
   sym_kStatic; sym_kVirtual; sym_kAbstract; sym_kDynamic; sym_kOverride; sym_kOverload;
   sym_kReintroduce; sym_kStdcall; sym_kCdecl; sym_kCppdecl; sym_kPascal; sym_kRegister;
   sym_kMwpascal; sym_kMessage; sym_kDeprecated; sym_kExperimental; sym_kPlatform;
   sym_kUnimplemented; sym_kCvar; sym_kExport; sym_kFar; sym_kNear; sym_kSafecall;
   sym_kAssembler; sym_kNostackframe; sym_kInterrupt; sym_kNoreturn; sym_kIocheck; sym_kLocal;
   sym_kHardfloat; sym_kSoftfloat; sym_kMs_abi_default; sym_kMs_abi_cdecl; sym_kSaveregisters;
   sym_kSysv_abi_default; sym_kSysv_abi_cdecl; sym_kVectorcall; sym_kVarargs; sym_kWinapi;
   sym_kAlias; sym_kCase; sym_kClass; sym_kConst; sym_kConstructor; sym_kDestructor; sym_kEnd;
   sym_kFunction; sym_kInline; sym_kProcedure; sym_kProperty; sym_kResourcestring;
   sym_kThreadvar; sym_kType; sym_kVar]].

(** State 2441. *)
Definition ts_parse_table_2441 : parse_row :=
  [STATE 2887 [sym__ppIf]; STATE 2734 [sym__procAttributeNoExt];
   STATE 2735 [sym__procAttributesPp]; STATE 15193 [sym_procAttribute];
   STATE 2447 [aux_sym__declProc_repeat1]; ACTIONS 14501 [anon_sym_LBRACK];
   ACTIONS 1341 [aux_sym_ppUsesBlock_token1]; ACTIONS 3 [sym__space];
   ACTIONS 5 [sym_ppDirective]; ACTIONS 3 [sym_comment]; ACTIONS 1016 [sym_kDefault;
   sym_kNodefault]; ACTIONS 11641 [sym_kDispId]; ACTIONS 1334 [sym_kGeneric; sym_kOperator];
   ACTIONS 11643 [sym_kPublic]; ACTIONS 1016 [sym_kStatic; sym_kVirtual; sym_kAbstract;
   sym_kDynamic; sym_kOverride; sym_kOverload; sym_kReintroduce; sym_kStdcall; sym_kCdecl;
   sym_kCppdecl; sym_kPascal; sym_kRegister; sym_kMwpascal]; ACTIONS 11645 [sym_kMessage];
   ACTIONS 11647 [sym_kDeprecated]; ACTIONS 1016 [sym_kExperimental; sym_kPlatform;
   sym_kUnimplemented; sym_kCvar]; ACTIONS 11649 [sym_kExport]; ACTIONS 1016 [sym_kFar;
   sym_kNear; sym_kSafecall; sym_kAssembler; sym_kNostackframe; sym_kInterrupt; sym_kNoreturn;
   sym_kIocheck; sym_kLocal; sym_kHardfloat; sym_kSoftfloat; sym_kMs_abi_default;
   sym_kMs_abi_cdecl; sym_kSaveregisters; sym_kSysv_abi_default; sym_kSysv_abi_cdecl;
   sym_kVectorcall; sym_kVarargs; sym_kWinapi]; ACTIONS 11651 [sym_kAlias];
   ACTIONS 1334 [sym_kAsm; sym_kBegin; sym_kClass; sym_kConst; sym_kConstructor; sym_kDestructor;
   sym_kExports; sym_kFunction]; ACTIONS 1016 [sym_kInline]; ACTIONS 1334 [sym_kLabel;
   sym_kProcedure; sym_kResourcestring; sym_kThreadvar; sym_kType; sym_kUses; sym_kVar]].

(** State 2442. *)
Definition ts_parse_table_2442 : parse_row :=
  [STATE 2887 [sym__ppIf]; STATE 2734 [sym__procAttributeNoExt];
   STATE 2735 [sym__procAttributesPp]; STATE 15193 [sym_procAttribute];
   STATE 2451 [aux_sym__declProc_repeat1]; ACTIONS 14504 [anon_sym_LBRACK];
   ACTIONS 1390 [aux_sym_ppUsesBlock_token1]; ACTIONS 3 [sym__space];
   ACTIONS 5 [sym_ppDirective]; ACTIONS 3 [sym_comment]; ACTIONS 1016 [sym_kDefault;
   sym_kNodefault]; ACTIONS 11641 [sym_kDispId]; ACTIONS 1383 [sym_kGeneric; sym_kOperator];
   ACTIONS 11643 [sym_kPublic]; ACTIONS 1016 [sym_kStatic; sym_kVirtual; sym_kAbstract;
   sym_kDynamic; sym_kOverride; sym_kOverload; sym_kReintroduce; sym_kStdcall; sym_kCdecl;
   sym_kCppdecl; sym_kPascal; sym_kRegister; sym_kMwpascal]; ACTIONS 11645 [sym_kMessage];
   ACTIONS 11647 [sym_kDeprecated]; ACTIONS 1016 [sym_kExperimental; sym_kPlatform;
   sym_kUnimplemented; sym_kCvar]; ACTIONS 11649 [sym_kExport]; ACTIONS 1016 [sym_kFar;
   sym_kNear; sym_kSafecall; sym_kAssembler; sym_kNostackframe; sym_kInterrupt; sym_kNoreturn;
   sym_kIocheck; sym_kLocal; sym_kHardfloat; sym_kSoftfloat; sym_kMs_abi_default;
   sym_kMs_abi_cdecl; sym_kSaveregisters; sym_kSysv_abi_default; sym_kSysv_abi_cdecl;
   sym_kVectorcall; sym_kVarargs; sym_kWinapi]; ACTIONS 11651 [sym_kAlias];
   ACTIONS 1383 [sym_kAsm; sym_kBegin; sym_kClass; sym_kConst; sym_kConstructor; sym_kDestructor;
   sym_kExports; sym_kFunction]; ACTIONS 1016 [sym_kInline]; ACTIONS 1383 [sym_kLabel;
   sym_kProcedure; sym_kResourcestring; sym_kThreadvar; sym_kType; sym_kUses; sym_kVar]].

(** State 2443. *)
Definition ts_parse_table_2443 : parse_row :=
  [ACTIONS 10590 [anon_sym_LBRACK; aux_sym_ppUsesBlock_token1]; ACTIONS 3 [sym__space];
   ACTIONS 5 [sym_ppDirective]; ACTIONS 3 [sym_comment]; ACTIONS 10590 [sym_identifier;
   sym_kDefault; sym_kNodefault; sym_kDispId; sym_kGeneric; sym_kOperator; sym_kPublished;
   sym_kPublic; sym_kProtected; sym_kPrivate; sym_kStrict; sym_kRequired; sym_kOptional;
   sym_kStatic; sym_kVirtual; sym_kAbstract; sym_kDynamic; sym_kOverride; sym_kOverload;
   sym_kReintroduce; sym_kStdcall; sym_kCdecl; sym_kCppdecl; sym_kPascal; sym_kRegister;
   sym_kMwpascal; sym_kMessage; sym_kDeprecated; sym_kExperimental; sym_kPlatform;
   sym_kUnimplemented; sym_kCvar; sym_kExport; sym_kFar; sym_kNear; sym_kSafecall;
   sym_kAssembler; sym_kNostackframe; sym_kInterrupt; sym_kNoreturn; sym_kIocheck; sym_kLocal;
   sym_kHardfloat; sym_kSoftfloat; sym_kMs_abi_default; sym_kMs_abi_cdecl; sym_kSaveregisters;
   sym_kSysv_abi_default; sym_kSysv_abi_cdecl; sym_kVectorcall; sym_kVarargs; sym_kWinapi;
   sym_kAlias; sym_kCase; sym_kClass; sym_kConst; sym_kConstructor; sym_kDestructor; sym_kEnd;
   sym_kFunction; sym_kInline; sym_kProcedure; sym_kProperty; sym_kResourcestring;
   sym_kThreadvar; sym_kType; sym_kVar]].

(** State 2444. *)
Definition ts_parse_table_2444 : parse_row :=
  [ACTIONS 10594 [anon_sym_LBRACK; aux_sym_ppUsesBlock_token1]; ACTIONS 3 [sym__space];
   ACTIONS 5 [sym_ppDirective]; ACTIONS 3 [sym_comment]; ACTIONS 10594 [sym_identifier;
   sym_kDefault; sym_kNodefault; sym_kDispId; sym_kGeneric; sym_kOperator; sym_kPublished;
   sym_kPublic; sym_kProtected; sym_kPrivate; sym_kStrict; sym_kRequired; sym_kOptional;
   sym_kStatic; sym_kVirtual; sym_kAbstract; sym_kDynamic; sym_kOverride; sym_kOverload;
   sym_kReintroduce; sym_kStdcall; sym_kCdecl; sym_kCppdecl; sym_kPascal; sym_kRegister;
   sym_kMwpascal; sym_kMessage; sym_kDeprecated; sym_kExperimental; sym_kPlatform;
   sym_kUnimplemented; sym_kCvar; sym_kExport; sym_kFar; sym_kNear; sym_kSafecall;
   sym_kAssembler; sym_kNostackframe; sym_kInterrupt; sym_kNoreturn; sym_kIocheck; sym_kLocal;
   sym_kHardfloat; sym_kSoftfloat; sym_kMs_abi_default; sym_kMs_abi_cdecl; sym_kSaveregisters;
   sym_kSysv_abi_default; sym_kSysv_abi_cdecl; sym_kVectorcall; sym_kVarargs; sym_kWinapi;
   sym_kAlias; sym_kCase; sym_kClass; sym_kConst; sym_kConstructor; sym_kDestructor; sym_kEnd;
   sym_kFunction; sym_kInline; sym_kProcedure; sym_kProperty; sym_kResourcestring;
   sym_kThreadvar; sym_kType; sym_kVar]].

(** State 2445. *)
Definition ts_parse_table_2445 : parse_row :=
  [ACTIONS 10594 [anon_sym_LBRACK; aux_sym_ppUsesBlock_token1]; ACTIONS 3 [sym__space];
   ACTIONS 5 [sym_ppDirective]; ACTIONS 3 [sym_comment]; ACTIONS 10594 [sym_identifier;
   sym_kDefault; sym_kNodefault; sym_kDispId; sym_kGeneric; sym_kOperator; sym_kPublished;
   sym_kPublic; sym_kProtected; sym_kPrivate; sym_kStrict; sym_kRequired; sym_kOptional;
   sym_kStatic; sym_kVirtual; sym_kAbstract; sym_kDynamic; sym_kOverride; sym_kOverload;
   sym_kReintroduce; sym_kStdcall; sym_kCdecl; sym_kCppdecl; sym_kPascal; sym_kRegister;
   sym_kMwpascal; sym_kMessage; sym_kDeprecated; sym_kExperimental; sym_kPlatform;
   sym_kUnimplemented; sym_kCvar; sym_kExport; sym_kFar; sym_kNear; sym_kSafecall;
   sym_kAssembler; sym_kNostackframe; sym_kInterrupt; sym_kNoreturn; sym_kIocheck; sym_kLocal;
   sym_kHardfloat; sym_kSoftfloat; sym_kMs_abi_default; sym_kMs_abi_cdecl; sym_kSaveregisters;
   sym_kSysv_abi_default; sym_kSysv_abi_cdecl; sym_kVectorcall; sym_kVarargs; sym_kWinapi;
   sym_kAlias; sym_kCase; sym_kClass; sym_kConst; sym_kConstructor; sym_kDestructor; sym_kEnd;
   sym_kFunction; sym_kInline; sym_kProcedure; sym_kProperty; sym_kResourcestring;
   sym_kThreadvar; sym_kType; sym_kVar]].

(** State 2446. *)
Definition ts_parse_table_2446 : parse_row :=
  [STATE 2887 [sym__ppIf]; STATE 2734 [sym__procAttributeNoExt];
   STATE 2735 [sym__procAttributesPp]; STATE 15193 [sym_procAttribute];
   STATE 2394 [aux_sym__declProc_repeat1]; ACTIONS 14507 [anon_sym_LBRACK];
   ACTIONS 5633 [aux_sym_ppUsesBlock_token1]; ACTIONS 3 [sym__space];
   ACTIONS 5 [sym_ppDirective]; ACTIONS 3 [sym_comment]; ACTIONS 1016 [sym_kDefault;
   sym_kNodefault]; ACTIONS 11641 [sym_kDispId]; ACTIONS 5626 [sym_kGeneric; sym_kOperator];
   ACTIONS 11643 [sym_kPublic]; ACTIONS 1016 [sym_kStatic; sym_kVirtual; sym_kAbstract;
   sym_kDynamic; sym_kOverride; sym_kOverload; sym_kReintroduce; sym_kStdcall; sym_kCdecl;
   sym_kCppdecl; sym_kPascal; sym_kRegister; sym_kMwpascal]; ACTIONS 11645 [sym_kMessage];
   ACTIONS 11647 [sym_kDeprecated]; ACTIONS 1016 [sym_kExperimental; sym_kPlatform;
   sym_kUnimplemented; sym_kCvar]; ACTIONS 11649 [sym_kExport]; ACTIONS 1016 [sym_kFar;
   sym_kNear; sym_kSafecall; sym_kAssembler; sym_kNostackframe; sym_kInterrupt; sym_kNoreturn;
   sym_kIocheck; sym_kLocal; sym_kHardfloat; sym_kSoftfloat; sym_kMs_abi_default;
   sym_kMs_abi_cdecl; sym_kSaveregisters; sym_kSysv_abi_default; sym_kSysv_abi_cdecl;
   sym_kVectorcall; sym_kVarargs; sym_kWinapi]; ACTIONS 11651 [sym_kAlias];
   ACTIONS 5626 [sym_kAsm; sym_kBegin; sym_kClass; sym_kConst; sym_kConstructor; sym_kDestructor;
   sym_kExports; sym_kFunction]; ACTIONS 1016 [sym_kInline]; ACTIONS 5626 [sym_kLabel;
   sym_kProcedure; sym_kResourcestring; sym_kThreadvar; sym_kType; sym_kUses; sym_kVar]].

(** State 2447. *)
Definition ts_parse_table_2447 : parse_row :=
  [STATE 2887 [sym__ppIf]; STATE 2734 [sym__procAttributeNoExt];
   STATE 2735 [sym__procAttributesPp]; STATE 15193 [sym_procAttribute];
   STATE 2417 [aux_sym__declProc_repeat1]; ACTIONS 14510 [anon_sym_LBRACK];
   ACTIONS 1439 [aux_sym_ppUsesBlock_token1]; ACTIONS 3 [sym__space];
   ACTIONS 5 [sym_ppDirective]; ACTIONS 3 [sym_comment]; ACTIONS 1016 [sym_kDefault;
   sym_kNodefault]; ACTIONS 11641 [sym_kDispId]; ACTIONS 1432 [sym_kGeneric; sym_kOperator];
   ACTIONS 11643 [sym_kPublic]; ACTIONS 1016 [sym_kStatic; sym_kVirtual; sym_kAbstract;
   sym_kDynamic; sym_kOverride; sym_kOverload; sym_kReintroduce; sym_kStdcall; sym_kCdecl;
   sym_kCppdecl; sym_kPascal; sym_kRegister; sym_kMwpascal]; ACTIONS 11645 [sym_kMessage];
   ACTIONS 11647 [sym_kDeprecated]; ACTIONS 1016 [sym_kExperimental; sym_kPlatform;
   sym_kUnimplemented; sym_kCvar]; ACTIONS 11649 [sym_kExport]; ACTIONS 1016 [sym_kFar;
   sym_kNear; sym_kSafecall; sym_kAssembler; sym_kNostackframe; sym_kInterrupt; sym_kNoreturn;
   sym_kIocheck; sym_kLocal; sym_kHardfloat; sym_kSoftfloat; sym_kMs_abi_default;
   sym_kMs_abi_cdecl; sym_kSaveregisters; sym_kSysv_abi_default; sym_kSysv_abi_cdecl;
   sym_kVectorcall; sym_kVarargs; sym_kWinapi]; ACTIONS 11651 [sym_kAlias];
   ACTIONS 1432 [sym_kAsm; sym_kBegin; sym_kClass; sym_kConst; sym_kConstructor; sym_kDestructor;
   sym_kExports; sym_kFunction]; ACTIONS 1016 [sym_kInline]; ACTIONS 1432 [sym_kLabel;
   sym_kProcedure; sym_kResourcestring; sym_kThreadvar; sym_kType; sym_kUses; sym_kVar]].

(** State 2448. *)
Definition ts_parse_table_2448 : parse_row :=
  [STATE 2887 [sym__ppIf]; STATE 2734 [sym__procAttributeNoExt];
   STATE 2735 [sym__procAttributesPp]; STATE 15193 [sym_procAttribute];
   STATE 2342 [aux_sym__declProc_repeat1]; ACTIONS 14513 [anon_sym_LBRACK];
   ACTIONS 1484 [aux_sym_ppUsesBlock_token1]; ACTIONS 3 [sym__space];
   ACTIONS 5 [sym_ppDirective]; ACTIONS 3 [sym_comment]; ACTIONS 1016 [sym_kDefault;
   sym_kNodefault]; ACTIONS 11641 [sym_kDispId]; ACTIONS 1477 [sym_kGeneric; sym_kOperator];
   ACTIONS 11643 [sym_kPublic]; ACTIONS 1016 [sym_kStatic; sym_kVirtual; sym_kAbstract;
   sym_kDynamic; sym_kOverride; sym_kOverload; sym_kReintroduce; sym_kStdcall; sym_kCdecl;
   sym_kCppdecl; sym_kPascal; sym_kRegister; sym_kMwpascal]; ACTIONS 11645 [sym_kMessage];
   ACTIONS 11647 [sym_kDeprecated]; ACTIONS 1016 [sym_kExperimental; sym_kPlatform;
   sym_kUnimplemented; sym_kCvar]; ACTIONS 11649 [sym_kExport]; ACTIONS 1016 [sym_kFar;
   sym_kNear; sym_kSafecall; sym_kAssembler; sym_kNostackframe; sym_kInterrupt; sym_kNoreturn;
   sym_kIocheck; sym_kLocal; sym_kHardfloat; sym_kSoftfloat; sym_kMs_abi_default;
   sym_kMs_abi_cdecl; sym_kSaveregisters; sym_kSysv_abi_default; sym_kSysv_abi_cdecl;
   sym_kVectorcall; sym_kVarargs; sym_kWinapi]; ACTIONS 11651 [sym_kAlias];
   ACTIONS 1477 [sym_kAsm; sym_kBegin; sym_kClass; sym_kConst; sym_kConstructor; sym_kDestructor;
   sym_kExports; sym_kFunction]; ACTIONS 1016 [sym_kInline]; ACTIONS 1477 [sym_kLabel;
   sym_kProcedure; sym_kResourcestring; sym_kThreadvar; sym_kType; sym_kUses; sym_kVar]].

(** State 2449. *)
Definition ts_parse_table_2449 : parse_row :=
  [STATE 2887 [sym__ppIf]; STATE 2734 [sym__procAttributeNoExt];
   STATE 2735 [sym__procAttributesPp]; STATE 15193 [sym_procAttribute];
   STATE 2343 [aux_sym__declProc_repeat1]; ACTIONS 14516 [anon_sym_LBRACK];
   ACTIONS 1515 [aux_sym_ppUsesBlock_token1]; ACTIONS 3 [sym__space];
   ACTIONS 5 [sym_ppDirective]; ACTIONS 3 [sym_comment]; ACTIONS 1016 [sym_kDefault;
   sym_kNodefault]; ACTIONS 11641 [sym_kDispId]; ACTIONS 1508 [sym_kGeneric; sym_kOperator];
   ACTIONS 11643 [sym_kPublic]; ACTIONS 1016 [sym_kStatic; sym_kVirtual; sym_kAbstract;
   sym_kDynamic; sym_kOverride; sym_kOverload; sym_kReintroduce; sym_kStdcall; sym_kCdecl;
   sym_kCppdecl; sym_kPascal; sym_kRegister; sym_kMwpascal]; ACTIONS 11645 [sym_kMessage];
   ACTIONS 11647 [sym_kDeprecated]; ACTIONS 1016 [sym_kExperimental; sym_kPlatform;
   sym_kUnimplemented; sym_kCvar]; ACTIONS 11649 [sym_kExport]; ACTIONS 1016 [sym_kFar;
   sym_kNear; sym_kSafecall; sym_kAssembler; sym_kNostackframe; sym_kInterrupt; sym_kNoreturn;
   sym_kIocheck; sym_kLocal; sym_kHardfloat; sym_kSoftfloat; sym_kMs_abi_default;
   sym_kMs_abi_cdecl; sym_kSaveregisters; sym_kSysv_abi_default; sym_kSysv_abi_cdecl;
   sym_kVectorcall; sym_kVarargs; sym_kWinapi]; ACTIONS 11651 [sym_kAlias];
   ACTIONS 1508 [sym_kAsm; sym_kBegin; sym_kClass; sym_kConst; sym_kConstructor; sym_kDestructor;
   sym_kExports; sym_kFunction]; ACTIONS 1016 [sym_kInline]; ACTIONS 1508 [sym_kLabel;
   sym_kProcedure; sym_kResourcestring; sym_kThreadvar; sym_kType; sym_kUses; sym_kVar]].

(** State 2450. *)
Definition ts_parse_table_2450 : parse_row :=
  [STATE 2887 [sym__ppIf]; STATE 2734 [sym__procAttributeNoExt];
   STATE 2735 [sym__procAttributesPp]; STATE 15193 [sym_procAttribute];
   STATE 2345 [aux_sym__declProc_repeat1]; ACTIONS 14519 [anon_sym_LBRACK];
   ACTIONS 1546 [aux_sym_ppUsesBlock_token1]; ACTIONS 3 [sym__space];
   ACTIONS 5 [sym_ppDirective]; ACTIONS 3 [sym_comment]; ACTIONS 1016 [sym_kDefault;
   sym_kNodefault]; ACTIONS 11641 [sym_kDispId]; ACTIONS 1539 [sym_kGeneric; sym_kOperator];
   ACTIONS 11643 [sym_kPublic]; ACTIONS 1016 [sym_kStatic; sym_kVirtual; sym_kAbstract;
   sym_kDynamic; sym_kOverride; sym_kOverload; sym_kReintroduce; sym_kStdcall; sym_kCdecl;
   sym_kCppdecl; sym_kPascal; sym_kRegister; sym_kMwpascal]; ACTIONS 11645 [sym_kMessage];
   ACTIONS 11647 [sym_kDeprecated]; ACTIONS 1016 [sym_kExperimental; sym_kPlatform;
   sym_kUnimplemented; sym_kCvar]; ACTIONS 11649 [sym_kExport]; ACTIONS 1016 [sym_kFar;
   sym_kNear; sym_kSafecall; sym_kAssembler; sym_kNostackframe; sym_kInterrupt; sym_kNoreturn;
   sym_kIocheck; sym_kLocal; sym_kHardfloat; sym_kSoftfloat; sym_kMs_abi_default;
   sym_kMs_abi_cdecl; sym_kSaveregisters; sym_kSysv_abi_default; sym_kSysv_abi_cdecl;
   sym_kVectorcall; sym_kVarargs; sym_kWinapi]; ACTIONS 11651 [sym_kAlias];
   ACTIONS 1539 [sym_kAsm; sym_kBegin; sym_kClass; sym_kConst; sym_kConstructor; sym_kDestructor;
   sym_kExports; sym_kFunction]; ACTIONS 1016 [sym_kInline]; ACTIONS 1539 [sym_kLabel;
   sym_kProcedure; sym_kResourcestring; sym_kThreadvar; sym_kType; sym_kUses; sym_kVar]].

(** State 2451. *)
Definition ts_parse_table_2451 : parse_row :=
  [STATE 2887 [sym__ppIf]; STATE 2734 [sym__procAttributeNoExt];
   STATE 2735 [sym__procAttributesPp]; STATE 15193 [sym_procAttribute];
   STATE 2417 [aux_sym__declProc_repeat1]; ACTIONS 14522 [anon_sym_LBRACK];
   ACTIONS 1579 [aux_sym_ppUsesBlock_token1]; ACTIONS 3 [sym__space];
   ACTIONS 5 [sym_ppDirective]; ACTIONS 3 [sym_comment]; ACTIONS 1016 [sym_kDefault;
   sym_kNodefault]; ACTIONS 11641 [sym_kDispId]; ACTIONS 1572 [sym_kGeneric; sym_kOperator];
   ACTIONS 11643 [sym_kPublic]; ACTIONS 1016 [sym_kStatic; sym_kVirtual; sym_kAbstract;
   sym_kDynamic; sym_kOverride; sym_kOverload; sym_kReintroduce; sym_kStdcall; sym_kCdecl;
   sym_kCppdecl; sym_kPascal; sym_kRegister; sym_kMwpascal]; ACTIONS 11645 [sym_kMessage];
   ACTIONS 11647 [sym_kDeprecated]; ACTIONS 1016 [sym_kExperimental; sym_kPlatform;
   sym_kUnimplemented; sym_kCvar]; ACTIONS 11649 [sym_kExport]; ACTIONS 1016 [sym_kFar;
   sym_kNear; sym_kSafecall; sym_kAssembler; sym_kNostackframe; sym_kInterrupt; sym_kNoreturn;
   sym_kIocheck; sym_kLocal; sym_kHardfloat; sym_kSoftfloat; sym_kMs_abi_default;
   sym_kMs_abi_cdecl; sym_kSaveregisters; sym_kSysv_abi_default; sym_kSysv_abi_cdecl;
   sym_kVectorcall; sym_kVarargs; sym_kWinapi]; ACTIONS 11651 [sym_kAlias];
   ACTIONS 1572 [sym_kAsm; sym_kBegin; sym_kClass; sym_kConst; sym_kConstructor; sym_kDestructor;
   sym_kExports; sym_kFunction]; ACTIONS 1016 [sym_kInline]; ACTIONS 1572 [sym_kLabel;
   sym_kProcedure; sym_kResourcestring; sym_kThreadvar; sym_kType; sym_kUses; sym_kVar]].

(** State 2452. *)
Definition ts_parse_table_2452 : parse_row :=
  [STATE 2887 [sym__ppIf]; STATE 2734 [sym__procAttributeNoExt];
   STATE 2735 [sym__procAttributesPp]; STATE 15193 [sym_procAttribute];
   STATE 2349 [aux_sym__declProc_repeat1]; ACTIONS 14525 [anon_sym_LBRACK];
   ACTIONS 1624 [aux_sym_ppUsesBlock_token1]; ACTIONS 3 [sym__space];
   ACTIONS 5 [sym_ppDirective]; ACTIONS 3 [sym_comment]; ACTIONS 1016 [sym_kDefault;
   sym_kNodefault]; ACTIONS 11641 [sym_kDispId]; ACTIONS 1617 [sym_kGeneric; sym_kOperator];
   ACTIONS 11643 [sym_kPublic]; ACTIONS 1016 [sym_kStatic; sym_kVirtual; sym_kAbstract;
   sym_kDynamic; sym_kOverride; sym_kOverload; sym_kReintroduce; sym_kStdcall; sym_kCdecl;
   sym_kCppdecl; sym_kPascal; sym_kRegister; sym_kMwpascal]; ACTIONS 11645 [sym_kMessage];
   ACTIONS 11647 [sym_kDeprecated]; ACTIONS 1016 [sym_kExperimental; sym_kPlatform;
   sym_kUnimplemented; sym_kCvar]; ACTIONS 11649 [sym_kExport]; ACTIONS 1016 [sym_kFar;
   sym_kNear; sym_kSafecall; sym_kAssembler; sym_kNostackframe; sym_kInterrupt; sym_kNoreturn;
   sym_kIocheck; sym_kLocal; sym_kHardfloat; sym_kSoftfloat; sym_kMs_abi_default;
   sym_kMs_abi_cdecl; sym_kSaveregisters; sym_kSysv_abi_default; sym_kSysv_abi_cdecl;
   sym_kVectorcall; sym_kVarargs; sym_kWinapi]; ACTIONS 11651 [sym_kAlias];
   ACTIONS 1617 [sym_kAsm; sym_kBegin; sym_kClass; sym_kConst; sym_kConstructor; sym_kDestructor;
   sym_kExports; sym_kFunction]; ACTIONS 1016 [sym_kInline]; ACTIONS 1617 [sym_kLabel;
   sym_kProcedure; sym_kResourcestring; sym_kThreadvar; sym_kType; sym_kUses; sym_kVar]].

(** State 2453. *)
Definition ts_parse_table_2453 : parse_row :=
  [STATE 2887 [sym__ppIf]; STATE 2734 [sym__procAttributeNoExt];
   STATE 2735 [sym__procAttributesPp]; STATE 15193 [sym_procAttribute];
   STATE 2350 [aux_sym__declProc_repeat1]; ACTIONS 14528 [anon_sym_LBRACK];
   ACTIONS 1655 [aux_sym_ppUsesBlock_token1]; ACTIONS 3 [sym__space];
   ACTIONS 5 [sym_ppDirective]; ACTIONS 3 [sym_comment]; ACTIONS 1016 [sym_kDefault;
   sym_kNodefault]; ACTIONS 11641 [sym_kDispId]; ACTIONS 1648 [sym_kGeneric; sym_kOperator];
   ACTIONS 11643 [sym_kPublic]; ACTIONS 1016 [sym_kStatic; sym_kVirtual; sym_kAbstract;
   sym_kDynamic; sym_kOverride; sym_kOverload; sym_kReintroduce; sym_kStdcall; sym_kCdecl;
   sym_kCppdecl; sym_kPascal; sym_kRegister; sym_kMwpascal]; ACTIONS 11645 [sym_kMessage];
   ACTIONS 11647 [sym_kDeprecated]; ACTIONS 1016 [sym_kExperimental; sym_kPlatform;
   sym_kUnimplemented; sym_kCvar]; ACTIONS 11649 [sym_kExport]; ACTIONS 1016 [sym_kFar;
   sym_kNear; sym_kSafecall; sym_kAssembler; sym_kNostackframe; sym_kInterrupt; sym_kNoreturn;
   sym_kIocheck; sym_kLocal; sym_kHardfloat; sym_kSoftfloat; sym_kMs_abi_default;
   sym_kMs_abi_cdecl; sym_kSaveregisters; sym_kSysv_abi_default; sym_kSysv_abi_cdecl;
   sym_kVectorcall; sym_kVarargs; sym_kWinapi]; ACTIONS 11651 [sym_kAlias];
   ACTIONS 1648 [sym_kAsm; sym_kBegin; sym_kClass; sym_kConst; sym_kConstructor; sym_kDestructor;
   sym_kExports; sym_kFunction]; ACTIONS 1016 [sym_kInline]; ACTIONS 1648 [sym_kLabel;
   sym_kProcedure; sym_kResourcestring; sym_kThreadvar; sym_kType; sym_kUses; sym_kVar]].

(** State 2454. *)
Definition ts_parse_table_2454 : parse_row :=
  [ACTIONS 10566 [anon_sym_LBRACK; aux_sym_ppUsesBlock_token1]; ACTIONS 3 [sym__space];
   ACTIONS 5 [sym_ppDirective]; ACTIONS 3 [sym_comment]; ACTIONS 10566 [sym_identifier;
   sym_kDefault; sym_kNodefault; sym_kDispId; sym_kGeneric; sym_kOperator; sym_kPublic;
   sym_kStatic; sym_kVirtual; sym_kAbstract; sym_kDynamic; sym_kOverride; sym_kOverload;
   sym_kReintroduce; sym_kStdcall; sym_kCdecl; sym_kCppdecl; sym_kPascal; sym_kRegister;
   sym_kMwpascal; sym_kMessage; sym_kDeprecated; sym_kExperimental; sym_kPlatform;
   sym_kUnimplemented; sym_kCvar; sym_kExport; sym_kFar; sym_kNear; sym_kSafecall;
   sym_kAssembler; sym_kNostackframe; sym_kInterrupt; sym_kNoreturn; sym_kIocheck; sym_kLocal;
   sym_kHardfloat; sym_kSoftfloat; sym_kMs_abi_default; sym_kMs_abi_cdecl; sym_kSaveregisters;
   sym_kSysv_abi_default; sym_kSysv_abi_cdecl; sym_kVectorcall; sym_kVarargs; sym_kWinapi;
   sym_kAlias; sym_kBegin; sym_kClass; sym_kConst; sym_kConstructor; sym_kDestructor; sym_kEnd;
   sym_kExports; sym_kFinalization; sym_kFunction; sym_kImplementation; sym_kInitialization;
   sym_kInline; sym_kInterface; sym_kLabel; sym_kProcedure; sym_kResourcestring; sym_kThreadvar;
   sym_kType; sym_kUses; sym_kVar]].

(** State 2455. *)
Definition ts_parse_table_2455 : parse_row :=
  [ACTIONS 10576 [anon_sym_LBRACK; aux_sym_ppUsesBlock_token1]; ACTIONS 3 [sym__space];
   ACTIONS 5 [sym_ppDirective]; ACTIONS 3 [sym_comment]; ACTIONS 10576 [sym_identifier;
   sym_kDefault; sym_kNodefault; sym_kDispId; sym_kGeneric; sym_kOperator; sym_kPublic;
   sym_kStatic; sym_kVirtual; sym_kAbstract; sym_kDynamic; sym_kOverride; sym_kOverload;
   sym_kReintroduce; sym_kStdcall; sym_kCdecl; sym_kCppdecl; sym_kPascal; sym_kRegister;
   sym_kMwpascal; sym_kMessage; sym_kDeprecated; sym_kExperimental; sym_kPlatform;
   sym_kUnimplemented; sym_kCvar; sym_kExport; sym_kFar; sym_kNear; sym_kSafecall;
   sym_kAssembler; sym_kNostackframe; sym_kInterrupt; sym_kNoreturn; sym_kIocheck; sym_kLocal;
   sym_kHardfloat; sym_kSoftfloat; sym_kMs_abi_default; sym_kMs_abi_cdecl; sym_kSaveregisters;
   sym_kSysv_abi_default; sym_kSysv_abi_cdecl; sym_kVectorcall; sym_kVarargs; sym_kWinapi;
   sym_kAlias; sym_kBegin; sym_kClass; sym_kConst; sym_kConstructor; sym_kDestructor; sym_kEnd;
   sym_kExports; sym_kFinalization; sym_kFunction; sym_kImplementation; sym_kInitialization;
   sym_kInline; sym_kInterface; sym_kLabel; sym_kProcedure; sym_kResourcestring; sym_kThreadvar;
   sym_kType; sym_kUses; sym_kVar]].

(** State 2456. *)
Definition ts_parse_table_2456 : parse_row :=
  [ACTIONS 10590 [anon_sym_LBRACK; aux_sym_ppUsesBlock_token1]; ACTIONS 3 [sym__space];
   ACTIONS 5 [sym_ppDirective]; ACTIONS 3 [sym_comment]; ACTIONS 10590 [sym_identifier;
   sym_kDefault; sym_kNodefault; sym_kDispId; sym_kGeneric; sym_kOperator; sym_kPublic;
   sym_kStatic; sym_kVirtual; sym_kAbstract; sym_kDynamic; sym_kOverride; sym_kOverload;
   sym_kReintroduce; sym_kStdcall; sym_kCdecl; sym_kCppdecl; sym_kPascal; sym_kRegister;
   sym_kMwpascal; sym_kMessage; sym_kDeprecated; sym_kExperimental; sym_kPlatform;
   sym_kUnimplemented; sym_kCvar; sym_kExport; sym_kFar; sym_kNear; sym_kSafecall;
   sym_kAssembler; sym_kNostackframe; sym_kInterrupt; sym_kNoreturn; sym_kIocheck; sym_kLocal;
   sym_kHardfloat; sym_kSoftfloat; sym_kMs_abi_default; sym_kMs_abi_cdecl; sym_kSaveregisters;
   sym_kSysv_abi_default; sym_kSysv_abi_cdecl; sym_kVectorcall; sym_kVarargs; sym_kWinapi;
   sym_kAlias; sym_kBegin; sym_kClass; sym_kConst; sym_kConstructor; sym_kDestructor; sym_kEnd;
   sym_kExports; sym_kFinalization; sym_kFunction; sym_kImplementation; sym_kInitialization;
   sym_kInline; sym_kInterface; sym_kLabel; sym_kProcedure; sym_kResourcestring; sym_kThreadvar;
   sym_kType; sym_kUses; sym_kVar]].

(** State 2457. *)
Definition ts_parse_table_2457 : parse_row :=
  [ACTIONS 10594 [anon_sym_LBRACK; aux_sym_ppUsesBlock_token1]; ACTIONS 3 [sym__space];
   ACTIONS 5 [sym_ppDirective]; ACTIONS 3 [sym_comment]; ACTIONS 10594 [sym_identifier;
   sym_kDefault; sym_kNodefault; sym_kDispId; sym_kGeneric; sym_kOperator; sym_kPublic;
   sym_kStatic; sym_kVirtual; sym_kAbstract; sym_kDynamic; sym_kOverride; sym_kOverload;
   sym_kReintroduce; sym_kStdcall; sym_kCdecl; sym_kCppdecl; sym_kPascal; sym_kRegister;
   sym_kMwpascal; sym_kMessage; sym_kDeprecated; sym_kExperimental; sym_kPlatform;
   sym_kUnimplemented; sym_kCvar; sym_kExport; sym_kFar; sym_kNear; sym_kSafecall;
   sym_kAssembler; sym_kNostackframe; sym_kInterrupt; sym_kNoreturn; sym_kIocheck; sym_kLocal;
   sym_kHardfloat; sym_kSoftfloat; sym_kMs_abi_default; sym_kMs_abi_cdecl; sym_kSaveregisters;
   sym_kSysv_abi_default; sym_kSysv_abi_cdecl; sym_kVectorcall; sym_kVarargs; sym_kWinapi;
   sym_kAlias; sym_kBegin; sym_kClass; sym_kConst; sym_kConstructor; sym_kDestructor; sym_kEnd;
   sym_kExports; sym_kFinalization; sym_kFunction; sym_kImplementation; sym_kInitialization;
   sym_kInline; sym_kInterface; sym_kLabel; sym_kProcedure; sym_kResourcestring; sym_kThreadvar;
   sym_kType; sym_kUses; sym_kVar]].

(** State 2458. *)
Definition ts_parse_table_2458 : parse_row :=
  [ACTIONS 10594 [anon_sym_LBRACK; aux_sym_ppUsesBlock_token1]; ACTIONS 3 [sym__space];
   ACTIONS 5 [sym_ppDirective]; ACTIONS 3 [sym_comment]; ACTIONS 10594 [sym_identifier;
   sym_kDefault; sym_kNodefault; sym_kDispId; sym_kGeneric; sym_kOperator; sym_kPublic;
   sym_kStatic; sym_kVirtual; sym_kAbstract; sym_kDynamic; sym_kOverride; sym_kOverload;
   sym_kReintroduce; sym_kStdcall; sym_kCdecl; sym_kCppdecl; sym_kPascal; sym_kRegister;
   sym_kMwpascal; sym_kMessage; sym_kDeprecated; sym_kExperimental; sym_kPlatform;
   sym_kUnimplemented; sym_kCvar; sym_kExport; sym_kFar; sym_kNear; sym_kSafecall;
   sym_kAssembler; sym_kNostackframe; sym_kInterrupt; sym_kNoreturn; sym_kIocheck; sym_kLocal;
   sym_kHardfloat; sym_kSoftfloat; sym_kMs_abi_default; sym_kMs_abi_cdecl; sym_kSaveregisters;
   sym_kSysv_abi_default; sym_kSysv_abi_cdecl; sym_kVectorcall; sym_kVarargs; sym_kWinapi;
   sym_kAlias; sym_kBegin; sym_kClass; sym_kConst; sym_kConstructor; sym_kDestructor; sym_kEnd;
   sym_kExports; sym_kFinalization; sym_kFunction; sym_kImplementation; sym_kInitialization;
   sym_kInline; sym_kInterface; sym_kLabel; sym_kProcedure; sym_kResourcestring; sym_kThreadvar;
   sym_kType; sym_kUses; sym_kVar]].

(** State 2459. *)
Definition ts_parse_table_2459 : parse_row :=
  [STATE 2887 [sym__ppIf]; STATE 2734 [sym__procAttributeNoExt];
   STATE 2735 [sym__procAttributesPp]; STATE 15193 [sym_procAttribute];
   STATE 2341 [aux_sym__declProc_repeat1]; ACTIONS 14531 [anon_sym_LBRACK];
   ACTIONS 5866 [aux_sym_ppUsesBlock_token1]; ACTIONS 3 [sym__space];
   ACTIONS 5 [sym_ppDirective]; ACTIONS 3 [sym_comment]; ACTIONS 1016 [sym_kDefault;
   sym_kNodefault]; ACTIONS 11641 [sym_kDispId]; ACTIONS 5859 [sym_kGeneric; sym_kOperator];
   ACTIONS 11643 [sym_kPublic]; ACTIONS 1016 [sym_kStatic; sym_kVirtual; sym_kAbstract;
   sym_kDynamic; sym_kOverride; sym_kOverload; sym_kReintroduce; sym_kStdcall; sym_kCdecl;
   sym_kCppdecl; sym_kPascal; sym_kRegister; sym_kMwpascal]; ACTIONS 11645 [sym_kMessage];
   ACTIONS 11647 [sym_kDeprecated]; ACTIONS 1016 [sym_kExperimental; sym_kPlatform;
   sym_kUnimplemented; sym_kCvar]; ACTIONS 11649 [sym_kExport]; ACTIONS 1016 [sym_kFar;
   sym_kNear; sym_kSafecall; sym_kAssembler; sym_kNostackframe; sym_kInterrupt; sym_kNoreturn;
   sym_kIocheck; sym_kLocal; sym_kHardfloat; sym_kSoftfloat; sym_kMs_abi_default;
   sym_kMs_abi_cdecl; sym_kSaveregisters; sym_kSysv_abi_default; sym_kSysv_abi_cdecl;
   sym_kVectorcall; sym_kVarargs; sym_kWinapi]; ACTIONS 11651 [sym_kAlias];
   ACTIONS 5859 [sym_kAsm; sym_kBegin; sym_kClass; sym_kConst; sym_kConstructor; sym_kDestructor;
   sym_kExports; sym_kFunction]; ACTIONS 1016 [sym_kInline]; ACTIONS 5859 [sym_kLabel;
   sym_kProcedure; sym_kResourcestring; sym_kThreadvar; sym_kType; sym_kUses; sym_kVar]].

(** State 2460. *)
Definition ts_parse_table_2460 : parse_row :=
  [STATE 2887 [sym__ppIf]; STATE 2734 [sym__procAttributeNoExt];
   STATE 2735 [sym__procAttributesPp]; STATE 15193 [sym_procAttribute];
   STATE 2417 [aux_sym__declProc_repeat1]; ACTIONS 14534 [anon_sym_LBRACK];
   ACTIONS 6034 [aux_sym_ppUsesBlock_token1]; ACTIONS 3 [sym__space];
   ACTIONS 5 [sym_ppDirective]; ACTIONS 3 [sym_comment]; ACTIONS 1016 [sym_kDefault;
   sym_kNodefault]; ACTIONS 11641 [sym_kDispId]; ACTIONS 6027 [sym_kGeneric; sym_kOperator];
   ACTIONS 11643 [sym_kPublic]; ACTIONS 1016 [sym_kStatic; sym_kVirtual; sym_kAbstract;
   sym_kDynamic; sym_kOverride; sym_kOverload; sym_kReintroduce; sym_kStdcall; sym_kCdecl;
   sym_kCppdecl; sym_kPascal; sym_kRegister; sym_kMwpascal]; ACTIONS 11645 [sym_kMessage];
   ACTIONS 11647 [sym_kDeprecated]; ACTIONS 1016 [sym_kExperimental; sym_kPlatform;
   sym_kUnimplemented; sym_kCvar]; ACTIONS 11649 [sym_kExport]; ACTIONS 1016 [sym_kFar;
   sym_kNear; sym_kSafecall; sym_kAssembler; sym_kNostackframe; sym_kInterrupt; sym_kNoreturn;
   sym_kIocheck; sym_kLocal; sym_kHardfloat; sym_kSoftfloat; sym_kMs_abi_default;
   sym_kMs_abi_cdecl; sym_kSaveregisters; sym_kSysv_abi_default; sym_kSysv_abi_cdecl;
   sym_kVectorcall; sym_kVarargs; sym_kWinapi]; ACTIONS 11651 [sym_kAlias];
   ACTIONS 6027 [sym_kAsm; sym_kBegin; sym_kClass; sym_kConst; sym_kConstructor; sym_kDestructor;
   sym_kExports; sym_kFunction]; ACTIONS 1016 [sym_kInline]; ACTIONS 6027 [sym_kLabel;
   sym_kProcedure; sym_kResourcestring; sym_kThreadvar; sym_kType; sym_kUses; sym_kVar]].

(** State 2461. *)
Definition ts_parse_table_2461 : parse_row :=
  [ACTIONS 10566 [anon_sym_LBRACK; aux_sym_ppUsesBlock_token1]; ACTIONS 3 [sym__space];
   ACTIONS 5 [sym_ppDirective]; ACTIONS 3 [sym_comment]; ACTIONS 10566 [sym_identifier;
   sym_kDefault; sym_kNodefault; sym_kDispId; sym_kGeneric; sym_kOperator; sym_kPublic;
   sym_kStatic; sym_kVirtual; sym_kAbstract; sym_kDynamic; sym_kOverride; sym_kOverload;
   sym_kReintroduce; sym_kStdcall; sym_kCdecl; sym_kCppdecl; sym_kPascal; sym_kRegister;
   sym_kMwpascal; sym_kMessage; sym_kDeprecated; sym_kExperimental; sym_kPlatform;
   sym_kUnimplemented; sym_kCvar; sym_kExport; sym_kFar; sym_kNear; sym_kSafecall;
   sym_kAssembler; sym_kNostackframe; sym_kInterrupt; sym_kNoreturn; sym_kIocheck; sym_kLocal;
   sym_kHardfloat; sym_kSoftfloat; sym_kMs_abi_default; sym_kMs_abi_cdecl; sym_kSaveregisters;
   sym_kSysv_abi_default; sym_kSysv_abi_cdecl; sym_kVectorcall; sym_kVarargs; sym_kWinapi;
   sym_kAlias; sym_kClass; sym_kConst; sym_kConstructor; sym_kDestructor; sym_kEnd; sym_kExports;
   sym_kFinalization; sym_kFunction; sym_kImplementation; sym_kInitialization; sym_kInline;
   sym_kInterface; sym_kLabel; sym_kProcedure; sym_kProperty; sym_kResourcestring;
   sym_kThreadvar; sym_kType; sym_kUses; sym_kVar]].

(** State 2462. *)
Definition ts_parse_table_2462 : parse_row :=
  [STATE 2887 [sym__ppIf]; STATE 2734 [sym__procAttributeNoExt];
   STATE 2735 [sym__procAttributesPp]; STATE 15193 [sym_procAttribute];
   STATE 2417 [aux_sym__declProc_repeat1]; ACTIONS 14537 [anon_sym_LBRACK];
   ACTIONS 6433 [aux_sym_ppUsesBlock_token1]; ACTIONS 3 [sym__space];
   ACTIONS 5 [sym_ppDirective]; ACTIONS 3 [sym_comment]; ACTIONS 1016 [sym_kDefault;
   sym_kNodefault]; ACTIONS 11641 [sym_kDispId]; ACTIONS 6426 [sym_kGeneric; sym_kOperator];
   ACTIONS 11643 [sym_kPublic]; ACTIONS 1016 [sym_kStatic; sym_kVirtual; sym_kAbstract;
   sym_kDynamic; sym_kOverride; sym_kOverload; sym_kReintroduce; sym_kStdcall; sym_kCdecl;
   sym_kCppdecl; sym_kPascal; sym_kRegister; sym_kMwpascal]; ACTIONS 11645 [sym_kMessage];
   ACTIONS 11647 [sym_kDeprecated]; ACTIONS 1016 [sym_kExperimental; sym_kPlatform;
   sym_kUnimplemented; sym_kCvar]; ACTIONS 11649 [sym_kExport]; ACTIONS 1016 [sym_kFar;
   sym_kNear; sym_kSafecall; sym_kAssembler; sym_kNostackframe; sym_kInterrupt; sym_kNoreturn;
   sym_kIocheck; sym_kLocal; sym_kHardfloat; sym_kSoftfloat; sym_kMs_abi_default;
   sym_kMs_abi_cdecl; sym_kSaveregisters; sym_kSysv_abi_default; sym_kSysv_abi_cdecl;
   sym_kVectorcall; sym_kVarargs; sym_kWinapi]; ACTIONS 11651 [sym_kAlias];
   ACTIONS 6426 [sym_kAsm; sym_kBegin; sym_kClass; sym_kConst; sym_kConstructor; sym_kDestructor;
   sym_kExports; sym_kFunction]; ACTIONS 1016 [sym_kInline]; ACTIONS 6426 [sym_kLabel;
   sym_kProcedure; sym_kResourcestring; sym_kThreadvar; sym_kType; sym_kUses; sym_kVar]].

(** State 2463. *)
Definition ts_parse_table_2463 : parse_row :=
  [ACTIONS 10576 [anon_sym_LBRACK; aux_sym_ppUsesBlock_token1]; ACTIONS 3 [sym__space];
   ACTIONS 5 [sym_ppDirective]; ACTIONS 3 [sym_comment]; ACTIONS 10576 [sym_identifier;
   sym_kDefault; sym_kNodefault; sym_kDispId; sym_kGeneric; sym_kOperator; sym_kPublic;
   sym_kStatic; sym_kVirtual; sym_kAbstract; sym_kDynamic; sym_kOverride; sym_kOverload;
   sym_kReintroduce; sym_kStdcall; sym_kCdecl; sym_kCppdecl; sym_kPascal; sym_kRegister;
   sym_kMwpascal; sym_kMessage; sym_kDeprecated; sym_kExperimental; sym_kPlatform;
   sym_kUnimplemented; sym_kCvar; sym_kExport; sym_kFar; sym_kNear; sym_kSafecall;
   sym_kAssembler; sym_kNostackframe; sym_kInterrupt; sym_kNoreturn; sym_kIocheck; sym_kLocal;
   sym_kHardfloat; sym_kSoftfloat; sym_kMs_abi_default; sym_kMs_abi_cdecl; sym_kSaveregisters;
   sym_kSysv_abi_default; sym_kSysv_abi_cdecl; sym_kVectorcall; sym_kVarargs; sym_kWinapi;
   sym_kAlias; sym_kClass; sym_kConst; sym_kConstructor; sym_kDestructor; sym_kEnd; sym_kExports;
   sym_kFinalization; sym_kFunction; sym_kImplementation; sym_kInitialization; sym_kInline;
   sym_kInterface; sym_kLabel; sym_kProcedure; sym_kProperty; sym_kResourcestring;
   sym_kThreadvar; sym_kType; sym_kUses; sym_kVar]].

(** State 2464. *)
Definition ts_parse_table_2464 : parse_row :=
  [STATE 2887 [sym__ppIf]; STATE 2734 [sym__procAttributeNoExt];
   STATE 2735 [sym__procAttributesPp]; STATE 15193 [sym_procAttribute];
   STATE 2384 [aux_sym__declProc_repeat1]; ACTIONS 14540 [anon_sym_LBRACK];
   ACTIONS 7007 [aux_sym_ppUsesBlock_token1]; ACTIONS 3 [sym__space];
   ACTIONS 5 [sym_ppDirective]; ACTIONS 3 [sym_comment]; ACTIONS 1016 [sym_kDefault;
   sym_kNodefault]; ACTIONS 11641 [sym_kDispId]; ACTIONS 7000 [sym_kGeneric; sym_kOperator];
   ACTIONS 11643 [sym_kPublic]; ACTIONS 1016 [sym_kStatic; sym_kVirtual; sym_kAbstract;
   sym_kDynamic; sym_kOverride; sym_kOverload; sym_kReintroduce; sym_kStdcall; sym_kCdecl;
   sym_kCppdecl; sym_kPascal; sym_kRegister; sym_kMwpascal]; ACTIONS 11645 [sym_kMessage];
   ACTIONS 11647 [sym_kDeprecated]; ACTIONS 1016 [sym_kExperimental; sym_kPlatform;
   sym_kUnimplemented; sym_kCvar]; ACTIONS 11649 [sym_kExport]; ACTIONS 1016 [sym_kFar;
   sym_kNear; sym_kSafecall; sym_kAssembler; sym_kNostackframe; sym_kInterrupt; sym_kNoreturn;
   sym_kIocheck; sym_kLocal; sym_kHardfloat; sym_kSoftfloat; sym_kMs_abi_default;
   sym_kMs_abi_cdecl; sym_kSaveregisters; sym_kSysv_abi_default; sym_kSysv_abi_cdecl;
   sym_kVectorcall; sym_kVarargs; sym_kWinapi]; ACTIONS 11651 [sym_kAlias];
   ACTIONS 7000 [sym_kAsm; sym_kBegin; sym_kClass; sym_kConst; sym_kConstructor; sym_kDestructor;
   sym_kExports; sym_kFunction]; ACTIONS 1016 [sym_kInline]; ACTIONS 7000 [sym_kLabel;
   sym_kProcedure; sym_kResourcestring; sym_kThreadvar; sym_kType; sym_kUses; sym_kVar]].

(** State 2465. *)
Definition ts_parse_table_2465 : parse_row :=
  [ACTIONS 10590 [anon_sym_LBRACK; aux_sym_ppUsesBlock_token1]; ACTIONS 3 [sym__space];
   ACTIONS 5 [sym_ppDirective]; ACTIONS 3 [sym_comment]; ACTIONS 10590 [sym_identifier;
   sym_kDefault; sym_kNodefault; sym_kDispId; sym_kGeneric; sym_kOperator; sym_kPublic;
   sym_kStatic; sym_kVirtual; sym_kAbstract; sym_kDynamic; sym_kOverride; sym_kOverload;
   sym_kReintroduce; sym_kStdcall; sym_kCdecl; sym_kCppdecl; sym_kPascal; sym_kRegister;
   sym_kMwpascal; sym_kMessage; sym_kDeprecated; sym_kExperimental; sym_kPlatform;
   sym_kUnimplemented; sym_kCvar; sym_kExport; sym_kFar; sym_kNear; sym_kSafecall;
   sym_kAssembler; sym_kNostackframe; sym_kInterrupt; sym_kNoreturn; sym_kIocheck; sym_kLocal;
   sym_kHardfloat; sym_kSoftfloat; sym_kMs_abi_default; sym_kMs_abi_cdecl; sym_kSaveregisters;
   sym_kSysv_abi_default; sym_kSysv_abi_cdecl; sym_kVectorcall; sym_kVarargs; sym_kWinapi;
   sym_kAlias; sym_kClass; sym_kConst; sym_kConstructor; sym_kDestructor; sym_kEnd; sym_kExports;
   sym_kFinalization; sym_kFunction; sym_kImplementation; sym_kInitialization; sym_kInline;
   sym_kInterface; sym_kLabel; sym_kProcedure; sym_kProperty; sym_kResourcestring;
   sym_kThreadvar; sym_kType; sym_kUses; sym_kVar]].

(** State 2466. *)
Definition ts_parse_table_2466 : parse_row :=
  [STATE 2887 [sym__ppIf]; STATE 2734 [sym__procAttributeNoExt];
   STATE 2735 [sym__procAttributesPp]; STATE 15193 [sym_procAttribute];
   STATE 2417 [aux_sym__declProc_repeat1]; ACTIONS 14543 [anon_sym_LBRACK];
   ACTIONS 3859 [aux_sym_ppUsesBlock_token1]; ACTIONS 3 [sym__space];
   ACTIONS 5 [sym_ppDirective]; ACTIONS 3 [sym_comment]; ACTIONS 1016 [sym_kDefault;
   sym_kNodefault]; ACTIONS 11641 [sym_kDispId]; ACTIONS 3852 [sym_kGeneric; sym_kOperator];
   ACTIONS 11643 [sym_kPublic]; ACTIONS 1016 [sym_kStatic; sym_kVirtual; sym_kAbstract;
   sym_kDynamic; sym_kOverride; sym_kOverload; sym_kReintroduce; sym_kStdcall; sym_kCdecl;
   sym_kCppdecl; sym_kPascal; sym_kRegister; sym_kMwpascal]; ACTIONS 11645 [sym_kMessage];
   ACTIONS 11647 [sym_kDeprecated]; ACTIONS 1016 [sym_kExperimental; sym_kPlatform;
   sym_kUnimplemented; sym_kCvar]; ACTIONS 11649 [sym_kExport]; ACTIONS 1016 [sym_kFar;
   sym_kNear; sym_kSafecall; sym_kAssembler; sym_kNostackframe; sym_kInterrupt; sym_kNoreturn;
   sym_kIocheck; sym_kLocal; sym_kHardfloat; sym_kSoftfloat; sym_kMs_abi_default;
   sym_kMs_abi_cdecl; sym_kSaveregisters; sym_kSysv_abi_default; sym_kSysv_abi_cdecl;
   sym_kVectorcall; sym_kVarargs; sym_kWinapi]; ACTIONS 11651 [sym_kAlias];
   ACTIONS 3852 [sym_kAsm; sym_kBegin; sym_kClass; sym_kConst; sym_kConstructor; sym_kDestructor;
   sym_kExports; sym_kFunction]; ACTIONS 1016 [sym_kInline]; ACTIONS 3852 [sym_kLabel;
   sym_kProcedure; sym_kResourcestring; sym_kThreadvar; sym_kType; sym_kUses; sym_kVar]].

Definition ts_parse_table_part11 : list parse_row :=
  [
   ts_parse_table_2154; ts_parse_table_2155; ts_parse_table_2156; ts_parse_table_2157;
   ts_parse_table_2158; ts_parse_table_2159; ts_parse_table_2160; ts_parse_table_2161;
   ts_parse_table_2162; ts_parse_table_2163; ts_parse_table_2164; ts_parse_table_2165;
   ts_parse_table_2166; ts_parse_table_2167; ts_parse_table_2168; ts_parse_table_2169;
   ts_parse_table_2170; ts_parse_table_2171; ts_parse_table_2172; ts_parse_table_2173;
   ts_parse_table_2174; ts_parse_table_2175; ts_parse_table_2176; ts_parse_table_2177;
   ts_parse_table_2178; ts_parse_table_2179; ts_parse_table_2180; ts_parse_table_2181;
   ts_parse_table_2182; ts_parse_table_2183; ts_parse_table_2184; ts_parse_table_2185;
   ts_parse_table_2186; ts_parse_table_2187; ts_parse_table_2188; ts_parse_table_2189;
   ts_parse_table_2190; ts_parse_table_2191; ts_parse_table_2192; ts_parse_table_2193;
   ts_parse_table_2194; ts_parse_table_2195; ts_parse_table_2196; ts_parse_table_2197;
   ts_parse_table_2198; ts_parse_table_2199; ts_parse_table_2200; ts_parse_table_2201;
   ts_parse_table_2202; ts_parse_table_2203; ts_parse_table_2204; ts_parse_table_2205;
   ts_parse_table_2206; ts_parse_table_2207; ts_parse_table_2208; ts_parse_table_2209;
   ts_parse_table_2210; ts_parse_table_2211; ts_parse_table_2212; ts_parse_table_2213;
   ts_parse_table_2214; ts_parse_table_2215; ts_parse_table_2216; ts_parse_table_2217;
   ts_parse_table_2218; ts_parse_table_2219; ts_parse_table_2220; ts_parse_table_2221;
   ts_parse_table_2222; ts_parse_table_2223; ts_parse_table_2224; ts_parse_table_2225;
   ts_parse_table_2226; ts_parse_table_2227; ts_parse_table_2228; ts_parse_table_2229;
   ts_parse_table_2230; ts_parse_table_2231; ts_parse_table_2232; ts_parse_table_2233;
   ts_parse_table_2234; ts_parse_table_2235; ts_parse_table_2236; ts_parse_table_2237;
   ts_parse_table_2238; ts_parse_table_2239; ts_parse_table_2240; ts_parse_table_2241;
   ts_parse_table_2242; ts_parse_table_2243; ts_parse_table_2244; ts_parse_table_2245;
   ts_parse_table_2246; ts_parse_table_2247; ts_parse_table_2248; ts_parse_table_2249;
   ts_parse_table_2250; ts_parse_table_2251; ts_parse_table_2252; ts_parse_table_2253;
   ts_parse_table_2254; ts_parse_table_2255; ts_parse_table_2256; ts_parse_table_2257;
   ts_parse_table_2258; ts_parse_table_2259; ts_parse_table_2260; ts_parse_table_2261;
   ts_parse_table_2262; ts_parse_table_2263; ts_parse_table_2264; ts_parse_table_2265;
   ts_parse_table_2266; ts_parse_table_2267; ts_parse_table_2268; ts_parse_table_2269;
   ts_parse_table_2270; ts_parse_table_2271; ts_parse_table_2272; ts_parse_table_2273;
   ts_parse_table_2274; ts_parse_table_2275; ts_parse_table_2276; ts_parse_table_2277;
   ts_parse_table_2278; ts_parse_table_2279; ts_parse_table_2280; ts_parse_table_2281;
   ts_parse_table_2282; ts_parse_table_2283; ts_parse_table_2284; ts_parse_table_2285;
   ts_parse_table_2286; ts_parse_table_2287; ts_parse_table_2288; ts_parse_table_2289;
   ts_parse_table_2290; ts_parse_table_2291; ts_parse_table_2292; ts_parse_table_2293;
   ts_parse_table_2294; ts_parse_table_2295; ts_parse_table_2296; ts_parse_table_2297;
   ts_parse_table_2298; ts_parse_table_2299; ts_parse_table_2300; ts_parse_table_2301;
   ts_parse_table_2302; ts_parse_table_2303; ts_parse_table_2304; ts_parse_table_2305;
   ts_parse_table_2306; ts_parse_table_2307; ts_parse_table_2308; ts_parse_table_2309;
   ts_parse_table_2310; ts_parse_table_2311; ts_parse_table_2312; ts_parse_table_2313;
   ts_parse_table_2314; ts_parse_table_2315; ts_parse_table_2316; ts_parse_table_2317;
   ts_parse_table_2318; ts_parse_table_2319; ts_parse_table_2320; ts_parse_table_2321;
   ts_parse_table_2322; ts_parse_table_2323; ts_parse_table_2324; ts_parse_table_2325;
   ts_parse_table_2326; ts_parse_table_2327; ts_parse_table_2328; ts_parse_table_2329;
   ts_parse_table_2330; ts_parse_table_2331; ts_parse_table_2332; ts_parse_table_2333;
   ts_parse_table_2334; ts_parse_table_2335; ts_parse_table_2336; ts_parse_table_2337;
   ts_parse_table_2338; ts_parse_table_2339; ts_parse_table_2340; ts_parse_table_2341;
   ts_parse_table_2342; ts_parse_table_2343; ts_parse_table_2344; ts_parse_table_2345;
   ts_parse_table_2346; ts_parse_table_2347; ts_parse_table_2348; ts_parse_table_2349;
   ts_parse_table_2350; ts_parse_table_2351; ts_parse_table_2352; ts_parse_table_2353;
   ts_parse_table_2354; ts_parse_table_2355; ts_parse_table_2356; ts_parse_table_2357;
   ts_parse_table_2358; ts_parse_table_2359; ts_parse_table_2360; ts_parse_table_2361;
   ts_parse_table_2362; ts_parse_table_2363; ts_parse_table_2364; ts_parse_table_2365;
   ts_parse_table_2366; ts_parse_table_2367; ts_parse_table_2368; ts_parse_table_2369;
   ts_parse_table_2370; ts_parse_table_2371; ts_parse_table_2372; ts_parse_table_2373;
   ts_parse_table_2374; ts_parse_table_2375; ts_parse_table_2376; ts_parse_table_2377;
   ts_parse_table_2378; ts_parse_table_2379; ts_parse_table_2380; ts_parse_table_2381;
   ts_parse_table_2382; ts_parse_table_2383; ts_parse_table_2384; ts_parse_table_2385;
   ts_parse_table_2386; ts_parse_table_2387; ts_parse_table_2388; ts_parse_table_2389;
   ts_parse_table_2390; ts_parse_table_2391; ts_parse_table_2392; ts_parse_table_2393;
   ts_parse_table_2394; ts_parse_table_2395; ts_parse_table_2396; ts_parse_table_2397;
   ts_parse_table_2398; ts_parse_table_2399; ts_parse_table_2400; ts_parse_table_2401;
   ts_parse_table_2402; ts_parse_table_2403; ts_parse_table_2404; ts_parse_table_2405;
   ts_parse_table_2406; ts_parse_table_2407; ts_parse_table_2408; ts_parse_table_2409;
   ts_parse_table_2410; ts_parse_table_2411; ts_parse_table_2412; ts_parse_table_2413;
   ts_parse_table_2414; ts_parse_table_2415; ts_parse_table_2416; ts_parse_table_2417;
   ts_parse_table_2418; ts_parse_table_2419; ts_parse_table_2420; ts_parse_table_2421;
   ts_parse_table_2422; ts_parse_table_2423; ts_parse_table_2424; ts_parse_table_2425;
   ts_parse_table_2426; ts_parse_table_2427; ts_parse_table_2428; ts_parse_table_2429;
   ts_parse_table_2430; ts_parse_table_2431; ts_parse_table_2432; ts_parse_table_2433;
   ts_parse_table_2434; ts_parse_table_2435; ts_parse_table_2436; ts_parse_table_2437;
   ts_parse_table_2438; ts_parse_table_2439; ts_parse_table_2440; ts_parse_table_2441;
   ts_parse_table_2442; ts_parse_table_2443; ts_parse_table_2444; ts_parse_table_2445;
   ts_parse_table_2446; ts_parse_table_2447; ts_parse_table_2448; ts_parse_table_2449;
   ts_parse_table_2450; ts_parse_table_2451; ts_parse_table_2452; ts_parse_table_2453;
   ts_parse_table_2454; ts_parse_table_2455; ts_parse_table_2456; ts_parse_table_2457;
   ts_parse_table_2458; ts_parse_table_2459; ts_parse_table_2460; ts_parse_table_2461;
   ts_parse_table_2462; ts_parse_table_2463; ts_parse_table_2464; ts_parse_table_2465;
   ts_parse_table_2466
  ].
