(* ===== verification/ParseTable12.v ===== *)
(** * The parse table of [parser.c], states 2467 to 2758

    One definition for each row of [ts_parse_table], with the initializers of
    the row in the order of the source; consecutive initializers of the same
    value are one group. *)

From S2P Require Import Prelude.
From S2P Require Import Symbols.
From S2P Require Import ParseTypes.

(** State 2467. *)
Definition ts_parse_table_2467 : parse_row :=
  [STATE 2887 [sym__ppIf]; STATE 2734 [sym__procAttributeNoExt];
   STATE 2735 [sym__procAttributesPp]; STATE 15193 [sym_procAttribute];
   STATE 2390 [aux_sym__declProc_repeat1]; ACTIONS 14546 [anon_sym_LBRACK];
   ACTIONS 3918 [aux_sym_ppUsesBlock_token1]; ACTIONS 3 [sym__space];
   ACTIONS 5 [sym_ppDirective]; ACTIONS 3 [sym_comment]; ACTIONS 1016 [sym_kDefault;
   sym_kNodefault]; ACTIONS 11641 [sym_kDispId]; ACTIONS 3911 [sym_kGeneric; sym_kOperator];
   ACTIONS 11643 [sym_kPublic]; ACTIONS 1016 [sym_kStatic; sym_kVirtual; sym_kAbstract;
   sym_kDynamic; sym_kOverride; sym_kOverload; sym_kReintroduce; sym_kStdcall; sym_kCdecl;
   sym_kCppdecl; sym_kPascal; sym_kRegister; sym_kMwpascal]; ACTIONS 11645 [sym_kMessage];
   ACTIONS 11647 [sym_kDeprecated]; ACTIONS 1016 [sym_kExperimental; sym_kPlatform;
   sym_kUnimplemented; sym_kCvar]; ACTIONS 11649 [sym_kExport]; ACTIONS 1016 [sym_kFar;
   sym_kNear; sym_kSafecall; sym_kAssembler; sym_kNostackframe; sym_kInterrupt; sym_kNoreturn;
   sym_kIocheck; sym_kLocal; sym_kHardfloat; sym_kSoftfloat; sym_kMs_abi_default;
   sym_kMs_abi_cdecl; sym_kSaveregisters; sym_kSysv_abi_default; sym_kSysv_abi_cdecl;
   sym_kVectorcall; sym_kVarargs; sym_kWinapi]; ACTIONS 11651 [sym_kAlias];
   ACTIONS 3911 [sym_kAsm; sym_kBegin; sym_kClass; sym_kConst; sym_kConstructor; sym_kDestructor;
   sym_kExports; sym_kFunction]; ACTIONS 1016 [sym_kInline]; ACTIONS 3911 [sym_kLabel;
   sym_kProcedure; sym_kResourcestring; sym_kThreadvar; sym_kType; sym_kUses; sym_kVar]].

(** State 2468. *)
Definition ts_parse_table_2468 : parse_row :=
  [STATE 2887 [sym__ppIf]; STATE 2734 [sym__procAttributeNoExt];
   STATE 2735 [sym__procAttributesPp]; STATE 15193 [sym_procAttribute];
   STATE 2391 [aux_sym__declProc_repeat1]; ACTIONS 14549 [anon_sym_LBRACK];
   ACTIONS 4120 [aux_sym_ppUsesBlock_token1]; ACTIONS 3 [sym__space];
   ACTIONS 5 [sym_ppDirective]; ACTIONS 3 [sym_comment]; ACTIONS 1016 [sym_kDefault;
   sym_kNodefault]; ACTIONS 11641 [sym_kDispId]; ACTIONS 4113 [sym_kGeneric; sym_kOperator];
   ACTIONS 11643 [sym_kPublic]; ACTIONS 1016 [sym_kStatic; sym_kVirtual; sym_kAbstract;
   sym_kDynamic; sym_kOverride; sym_kOverload; sym_kReintroduce; sym_kStdcall; sym_kCdecl;
   sym_kCppdecl; sym_kPascal; sym_kRegister; sym_kMwpascal]; ACTIONS 11645 [sym_kMessage];
   ACTIONS 11647 [sym_kDeprecated]; ACTIONS 1016 [sym_kExperimental; sym_kPlatform;
   sym_kUnimplemented; sym_kCvar]; ACTIONS 11649 [sym_kExport]; ACTIONS 1016 [sym_kFar;
   sym_kNear; sym_kSafecall; sym_kAssembler; sym_kNostackframe; sym_kInterrupt; sym_kNoreturn;
   sym_kIocheck; sym_kLocal; sym_kHardfloat; sym_kSoftfloat; sym_kMs_abi_default;
   sym_kMs_abi_cdecl; sym_kSaveregisters; sym_kSysv_abi_default; sym_kSysv_abi_cdecl;
   sym_kVectorcall; sym_kVarargs; sym_kWinapi]; ACTIONS 11651 [sym_kAlias];
   ACTIONS 4113 [sym_kAsm; sym_kBegin; sym_kClass; sym_kConst; sym_kConstructor; sym_kDestructor;
   sym_kExports; sym_kFunction]; ACTIONS 1016 [sym_kInline]; ACTIONS 4113 [sym_kLabel;
   sym_kProcedure; sym_kResourcestring; sym_kThreadvar; sym_kType; sym_kUses; sym_kVar]].

(** State 2469. *)
Definition ts_parse_table_2469 : parse_row :=
  [ACTIONS 10594 [anon_sym_LBRACK; aux_sym_ppUsesBlock_token1]; ACTIONS 3 [sym__space];
   ACTIONS 5 [sym_ppDirective]; ACTIONS 3 [sym_comment]; ACTIONS 10594 [sym_identifier;
   sym_kDefault; sym_kNodefault; sym_kDispId; sym_kGeneric; sym_kOperator; sym_kPublic;
   sym_kStatic; sym_kVirtual; sym_kAbstract; sym_kDynamic; sym_kOverride; sym_kOverload;
   sym_kReintroduce; sym_kStdcall; sym_kCdecl; sym_kCppdecl; sym_kPascal; sym_kRegister;
   sym_kMwpascal; sym_kMessage; sym_kDeprecated; sym_kExperimental; sym_kPlatform;
   sym_kUnimplemented; sym_kCvar; sym_kExport; sym_kFar; sym_kNear; sym_kSafecall;
   sym_kAssembler; sym_kNostackframe; sym_kInterrupt; sym_kNoreturn; sym_kIocheck; sym_kLocal;
   sym_kHardfloat; sym_kSoftfloat; sym_kMs_abi_default; sym_kMs_abi_cdecl; sym_kSaveregisters;
   sym_kSysv_abi_default; sym_kSysv_abi_cdecl; sym_kVectorcall; sym_kVarargs; sym_kWinapi;
   sym_kAlias; sym_kClass; sym_kConst; sym_kConstructor; sym_kDestructor; sym_kEnd; sym_kExports;
   sym_kFinalization; sym_kFunction; sym_kImplementation; sym_kInitialization; sym_kInline;
   sym_kInterface; sym_kLabel; sym_kProcedure; sym_kProperty; sym_kResourcestring;
   sym_kThreadvar; sym_kType; sym_kUses; sym_kVar]].

(** State 2470. *)
Definition ts_parse_table_2470 : parse_row :=
  [ACTIONS 10594 [anon_sym_LBRACK; aux_sym_ppUsesBlock_token1]; ACTIONS 3 [sym__space];
   ACTIONS 5 [sym_ppDirective]; ACTIONS 3 [sym_comment]; ACTIONS 10594 [sym_identifier;
   sym_kDefault; sym_kNodefault; sym_kDispId; sym_kGeneric; sym_kOperator; sym_kPublic;
   sym_kStatic; sym_kVirtual; sym_kAbstract; sym_kDynamic; sym_kOverride; sym_kOverload;
   sym_kReintroduce; sym_kStdcall; sym_kCdecl; sym_kCppdecl; sym_kPascal; sym_kRegister;
   sym_kMwpascal; sym_kMessage; sym_kDeprecated; sym_kExperimental; sym_kPlatform;
   sym_kUnimplemented; sym_kCvar; sym_kExport; sym_kFar; sym_kNear; sym_kSafecall;
   sym_kAssembler; sym_kNostackframe; sym_kInterrupt; sym_kNoreturn; sym_kIocheck; sym_kLocal;
   sym_kHardfloat; sym_kSoftfloat; sym_kMs_abi_default; sym_kMs_abi_cdecl; sym_kSaveregisters;
   sym_kSysv_abi_default; sym_kSysv_abi_cdecl; sym_kVectorcall; sym_kVarargs; sym_kWinapi;
   sym_kAlias; sym_kClass; sym_kConst; sym_kConstructor; sym_kDestructor; sym_kEnd; sym_kExports;
   sym_kFinalization; sym_kFunction; sym_kImplementation; sym_kInitialization; sym_kInline;
   sym_kInterface; sym_kLabel; sym_kProcedure; sym_kProperty; sym_kResourcestring;
   sym_kThreadvar; sym_kType; sym_kUses; sym_kVar]].

(** State 2471. *)
Definition ts_parse_table_2471 : parse_row :=
  [STATE 2887 [sym__ppIf]; STATE 2734 [sym__procAttributeNoExt];
   STATE 2735 [sym__procAttributesPp]; STATE 15193 [sym_procAttribute];
   STATE 2417 [aux_sym__declProc_repeat1]; ACTIONS 14552 [anon_sym_LBRACK];
   ACTIONS 6396 [aux_sym_ppUsesBlock_token1]; ACTIONS 3 [sym__space];
   ACTIONS 5 [sym_ppDirective]; ACTIONS 3 [sym_comment]; ACTIONS 1016 [sym_kDefault;
   sym_kNodefault]; ACTIONS 11641 [sym_kDispId]; ACTIONS 6389 [sym_kGeneric; sym_kOperator];
   ACTIONS 11643 [sym_kPublic]; ACTIONS 1016 [sym_kStatic; sym_kVirtual; sym_kAbstract;
   sym_kDynamic; sym_kOverride; sym_kOverload; sym_kReintroduce; sym_kStdcall; sym_kCdecl;
   sym_kCppdecl; sym_kPascal; sym_kRegister; sym_kMwpascal]; ACTIONS 11645 [sym_kMessage];
   ACTIONS 11647 [sym_kDeprecated]; ACTIONS 1016 [sym_kExperimental; sym_kPlatform;
   sym_kUnimplemented; sym_kCvar]; ACTIONS 11649 [sym_kExport]; ACTIONS 1016 [sym_kFar;
   sym_kNear; sym_kSafecall; sym_kAssembler; sym_kNostackframe; sym_kInterrupt; sym_kNoreturn;
   sym_kIocheck; sym_kLocal; sym_kHardfloat; sym_kSoftfloat; sym_kMs_abi_default;
   sym_kMs_abi_cdecl; sym_kSaveregisters; sym_kSysv_abi_default; sym_kSysv_abi_cdecl;
   sym_kVectorcall; sym_kVarargs; sym_kWinapi]; ACTIONS 11651 [sym_kAlias];
   ACTIONS 6389 [sym_kAsm; sym_kBegin; sym_kClass; sym_kConst; sym_kConstructor; sym_kDestructor;
   sym_kExports; sym_kFunction]; ACTIONS 1016 [sym_kInline]; ACTIONS 6389 [sym_kLabel;
   sym_kProcedure; sym_kResourcestring; sym_kThreadvar; sym_kType; sym_kUses; sym_kVar]].

(** State 2472. *)
Definition ts_parse_table_2472 : parse_row :=
  [STATE 2670 [sym__procAttribute]; STATE 15598 [sym_procAttribute];
   STATE 2592 [aux_sym_declProcFwd_repeat1]; ACTIONS 14555 [anon_sym_LBRACK];
   ACTIONS 7602 [aux_sym_ppUsesBlock_token1]; ACTIONS 3 [sym__space];
   ACTIONS 5 [sym_ppDirective]; ACTIONS 3 [sym_comment]; ACTIONS 7602 [sym_identifier];
   ACTIONS 1016 [sym_kDefault; sym_kNodefault]; ACTIONS 11641 [sym_kDispId];
   ACTIONS 7602 [sym_kGeneric; sym_kOperator]; ACTIONS 11643 [sym_kPublic];
   ACTIONS 1016 [sym_kStatic; sym_kVirtual; sym_kAbstract; sym_kDynamic; sym_kOverride;
   sym_kOverload; sym_kReintroduce; sym_kStdcall; sym_kCdecl; sym_kCppdecl; sym_kPascal;
   sym_kRegister; sym_kMwpascal]; ACTIONS 11645 [sym_kMessage]; ACTIONS 11647 [sym_kDeprecated];
   ACTIONS 1016 [sym_kExperimental; sym_kPlatform; sym_kUnimplemented; sym_kCvar];
   ACTIONS 11649 [sym_kExport]; ACTIONS 1016 [sym_kFar; sym_kNear; sym_kSafecall; sym_kAssembler;
   sym_kNostackframe; sym_kInterrupt; sym_kNoreturn; sym_kIocheck; sym_kLocal; sym_kHardfloat;
   sym_kSoftfloat; sym_kMs_abi_default; sym_kMs_abi_cdecl; sym_kSaveregisters;
   sym_kSysv_abi_default; sym_kSysv_abi_cdecl; sym_kVectorcall; sym_kVarargs; sym_kWinapi];
   ACTIONS 11651 [sym_kAlias]; ACTIONS 7602 [sym_kAsm; sym_kBegin; sym_kClass; sym_kConst;
   sym_kConstructor; sym_kDestructor; sym_kExports; sym_kFunction]; ACTIONS 1016 [sym_kInline];
   ACTIONS 7602 [sym_kLabel; sym_kProcedure; sym_kResourcestring; sym_kThreadvar; sym_kType;
   sym_kUses; sym_kVar]].

(** State 2473. *)
Definition ts_parse_table_2473 : parse_row :=
  [STATE 2670 [sym__procAttribute]; STATE 15598 [sym_procAttribute];
   STATE 2482 [aux_sym_declProcFwd_repeat1]; ACTIONS 14558 [anon_sym_LBRACK];
   ACTIONS 8058 [aux_sym_ppUsesBlock_token1]; ACTIONS 3 [sym__space];
   ACTIONS 5 [sym_ppDirective]; ACTIONS 3 [sym_comment]; ACTIONS 8058 [sym_identifier];
   ACTIONS 1016 [sym_kDefault; sym_kNodefault]; ACTIONS 11641 [sym_kDispId];
   ACTIONS 8058 [sym_kGeneric; sym_kOperator]; ACTIONS 11643 [sym_kPublic];
   ACTIONS 1016 [sym_kStatic; sym_kVirtual; sym_kAbstract; sym_kDynamic; sym_kOverride;
   sym_kOverload; sym_kReintroduce; sym_kStdcall; sym_kCdecl; sym_kCppdecl; sym_kPascal;
   sym_kRegister; sym_kMwpascal]; ACTIONS 11645 [sym_kMessage]; ACTIONS 11647 [sym_kDeprecated];
   ACTIONS 1016 [sym_kExperimental; sym_kPlatform; sym_kUnimplemented; sym_kCvar];
   ACTIONS 11649 [sym_kExport]; ACTIONS 1016 [sym_kFar; sym_kNear; sym_kSafecall; sym_kAssembler;
   sym_kNostackframe; sym_kInterrupt; sym_kNoreturn; sym_kIocheck; sym_kLocal; sym_kHardfloat;
   sym_kSoftfloat; sym_kMs_abi_default; sym_kMs_abi_cdecl; sym_kSaveregisters;
   sym_kSysv_abi_default; sym_kSysv_abi_cdecl; sym_kVectorcall; sym_kVarargs; sym_kWinapi];
   ACTIONS 11651 [sym_kAlias]; ACTIONS 8058 [sym_kAsm; sym_kBegin; sym_kClass; sym_kConst;
   sym_kConstructor; sym_kDestructor; sym_kExports; sym_kFunction]; ACTIONS 1016 [sym_kInline];
   ACTIONS 8058 [sym_kLabel; sym_kProcedure; sym_kResourcestring; sym_kThreadvar; sym_kType;
   sym_kUses; sym_kVar]].

(** State 2474. *)
Definition ts_parse_table_2474 : parse_row :=
  [ACTIONS 10614 [anon_sym_LBRACK; aux_sym_ppUsesBlock_token1]; ACTIONS 3 [sym__space];
   ACTIONS 5 [sym_ppDirective]; ACTIONS 3 [sym_comment]; ACTIONS 10614 [sym_kDefault;
   sym_kNodefault; sym_kDispId; sym_kGeneric; sym_kOperator; sym_kPublic; sym_kStatic;
   sym_kVirtual; sym_kAbstract; sym_kDynamic; sym_kOverride; sym_kOverload; sym_kReintroduce;
   sym_kStdcall; sym_kCdecl; sym_kCppdecl; sym_kPascal; sym_kRegister; sym_kMwpascal;
   sym_kMessage; sym_kDeprecated; sym_kExperimental; sym_kPlatform; sym_kUnimplemented;
   sym_kCvar; sym_kExport; sym_kFar; sym_kNear; sym_kSafecall; sym_kAssembler; sym_kNostackframe;
   sym_kInterrupt; sym_kNoreturn; sym_kIocheck; sym_kLocal; sym_kHardfloat; sym_kSoftfloat;
   sym_kMs_abi_default; sym_kMs_abi_cdecl; sym_kSaveregisters; sym_kSysv_abi_default;
   sym_kSysv_abi_cdecl; sym_kVectorcall; sym_kVarargs; sym_kWinapi; sym_kAlias; sym_kClass;
   sym_kConst; sym_kConstructor; sym_kDestructor; sym_kEnd; sym_kExports; sym_kFinalization;
   sym_kFunction; sym_kImplementation; sym_kInitialization; sym_kInline; sym_kInterface;
   sym_kLabel; sym_kProcedure; sym_kProperty; sym_kResourcestring; sym_kThreadvar; sym_kType;
   sym_kUses; sym_kVar]].

(** State 2475. *)
Definition ts_parse_table_2475 : parse_row :=
  [ACTIONS 10630 [anon_sym_LBRACK; aux_sym_ppUsesBlock_token1]; ACTIONS 3 [sym__space];
   ACTIONS 5 [sym_ppDirective]; ACTIONS 3 [sym_comment]; ACTIONS 10630 [sym_kDefault;
   sym_kNodefault; sym_kDispId; sym_kGeneric; sym_kOperator; sym_kPublic; sym_kStatic;
   sym_kVirtual; sym_kAbstract; sym_kDynamic; sym_kOverride; sym_kOverload; sym_kReintroduce;
   sym_kStdcall; sym_kCdecl; sym_kCppdecl; sym_kPascal; sym_kRegister; sym_kMwpascal;
   sym_kMessage; sym_kDeprecated; sym_kExperimental; sym_kPlatform; sym_kUnimplemented;
   sym_kCvar; sym_kExport; sym_kFar; sym_kNear; sym_kSafecall; sym_kAssembler; sym_kNostackframe;
   sym_kInterrupt; sym_kNoreturn; sym_kIocheck; sym_kLocal; sym_kHardfloat; sym_kSoftfloat;
   sym_kMs_abi_default; sym_kMs_abi_cdecl; sym_kSaveregisters; sym_kSysv_abi_default;
   sym_kSysv_abi_cdecl; sym_kVectorcall; sym_kVarargs; sym_kWinapi; sym_kAlias; sym_kClass;
   sym_kConst; sym_kConstructor; sym_kDestructor; sym_kEnd; sym_kExports; sym_kFinalization;
   sym_kFunction; sym_kImplementation; sym_kInitialization; sym_kInline; sym_kInterface;
   sym_kLabel; sym_kProcedure; sym_kProperty; sym_kResourcestring; sym_kThreadvar; sym_kType;
   sym_kUses; sym_kVar]].

(** State 2476. *)
Definition ts_parse_table_2476 : parse_row :=
  [ACTIONS 10630 [anon_sym_LBRACK; aux_sym_ppUsesBlock_token1]; ACTIONS 3 [sym__space];
   ACTIONS 5 [sym_ppDirective]; ACTIONS 3 [sym_comment]; ACTIONS 10630 [sym_kDefault;
   sym_kNodefault; sym_kDispId; sym_kGeneric; sym_kOperator; sym_kPublic; sym_kStatic;
   sym_kVirtual; sym_kAbstract; sym_kDynamic; sym_kOverride; sym_kOverload; sym_kReintroduce;
   sym_kStdcall; sym_kCdecl; sym_kCppdecl; sym_kPascal; sym_kRegister; sym_kMwpascal;
   sym_kMessage; sym_kDeprecated; sym_kExperimental; sym_kPlatform; sym_kUnimplemented;
   sym_kCvar; sym_kExport; sym_kFar; sym_kNear; sym_kSafecall; sym_kAssembler; sym_kNostackframe;
   sym_kInterrupt; sym_kNoreturn; sym_kIocheck; sym_kLocal; sym_kHardfloat; sym_kSoftfloat;
   sym_kMs_abi_default; sym_kMs_abi_cdecl; sym_kSaveregisters; sym_kSysv_abi_default;
   sym_kSysv_abi_cdecl; sym_kVectorcall; sym_kVarargs; sym_kWinapi; sym_kAlias; sym_kBegin;
   sym_kClass; sym_kConst; sym_kConstructor; sym_kDestructor; sym_kEnd; sym_kExports;
   sym_kFinalization; sym_kFunction; sym_kImplementation; sym_kInitialization; sym_kInline;
   sym_kInterface; sym_kLabel; sym_kProcedure; sym_kResourcestring; sym_kThreadvar; sym_kType;
   sym_kUses; sym_kVar]].

(** State 2477. *)
Definition ts_parse_table_2477 : parse_row :=
  [STATE 2670 [sym__procAttribute]; STATE 15598 [sym_procAttribute];
   STATE 2488 [aux_sym_declProcFwd_repeat1]; ACTIONS 14561 [anon_sym_LBRACK];
   ACTIONS 8250 [aux_sym_ppUsesBlock_token1]; ACTIONS 3 [sym__space];
   ACTIONS 5 [sym_ppDirective]; ACTIONS 3 [sym_comment]; ACTIONS 8250 [sym_identifier];
   ACTIONS 1016 [sym_kDefault; sym_kNodefault]; ACTIONS 11641 [sym_kDispId];
   ACTIONS 8250 [sym_kGeneric; sym_kOperator]; ACTIONS 11643 [sym_kPublic];
   ACTIONS 1016 [sym_kStatic; sym_kVirtual; sym_kAbstract; sym_kDynamic; sym_kOverride;
   sym_kOverload; sym_kReintroduce; sym_kStdcall; sym_kCdecl; sym_kCppdecl; sym_kPascal;
   sym_kRegister; sym_kMwpascal]; ACTIONS 11645 [sym_kMessage]; ACTIONS 11647 [sym_kDeprecated];
   ACTIONS 1016 [sym_kExperimental; sym_kPlatform; sym_kUnimplemented; sym_kCvar];
   ACTIONS 11649 [sym_kExport]; ACTIONS 1016 [sym_kFar; sym_kNear; sym_kSafecall; sym_kAssembler;
   sym_kNostackframe; sym_kInterrupt; sym_kNoreturn; sym_kIocheck; sym_kLocal; sym_kHardfloat;
   sym_kSoftfloat; sym_kMs_abi_default; sym_kMs_abi_cdecl; sym_kSaveregisters;
   sym_kSysv_abi_default; sym_kSysv_abi_cdecl; sym_kVectorcall; sym_kVarargs; sym_kWinapi];
   ACTIONS 11651 [sym_kAlias]; ACTIONS 8250 [sym_kAsm; sym_kBegin; sym_kClass; sym_kConst;
   sym_kConstructor; sym_kDestructor; sym_kExports; sym_kFunction]; ACTIONS 1016 [sym_kInline];
   ACTIONS 8250 [sym_kLabel; sym_kProcedure; sym_kResourcestring; sym_kThreadvar; sym_kType;
   sym_kUses; sym_kVar]].

(** State 2478. *)
Definition ts_parse_table_2478 : parse_row :=
  [STATE 2670 [sym__procAttribute]; STATE 15598 [sym_procAttribute];
   STATE 2592 [aux_sym_declProcFwd_repeat1]; ACTIONS 14564 [anon_sym_LBRACK];
   ACTIONS 8278 [aux_sym_ppUsesBlock_token1]; ACTIONS 3 [sym__space];
   ACTIONS 5 [sym_ppDirective]; ACTIONS 3 [sym_comment]; ACTIONS 8278 [sym_identifier];
   ACTIONS 1016 [sym_kDefault; sym_kNodefault]; ACTIONS 11641 [sym_kDispId];
   ACTIONS 8278 [sym_kGeneric; sym_kOperator]; ACTIONS 11643 [sym_kPublic];
   ACTIONS 1016 [sym_kStatic; sym_kVirtual; sym_kAbstract; sym_kDynamic; sym_kOverride;
   sym_kOverload; sym_kReintroduce; sym_kStdcall; sym_kCdecl; sym_kCppdecl; sym_kPascal;
   sym_kRegister; sym_kMwpascal]; ACTIONS 11645 [sym_kMessage]; ACTIONS 11647 [sym_kDeprecated];
   ACTIONS 1016 [sym_kExperimental; sym_kPlatform; sym_kUnimplemented; sym_kCvar];
   ACTIONS 11649 [sym_kExport]; ACTIONS 1016 [sym_kFar; sym_kNear; sym_kSafecall; sym_kAssembler;
   sym_kNostackframe; sym_kInterrupt; sym_kNoreturn; sym_kIocheck; sym_kLocal; sym_kHardfloat;
   sym_kSoftfloat; sym_kMs_abi_default; sym_kMs_abi_cdecl; sym_kSaveregisters;
   sym_kSysv_abi_default; sym_kSysv_abi_cdecl; sym_kVectorcall; sym_kVarargs; sym_kWinapi];
   ACTIONS 11651 [sym_kAlias]; ACTIONS 8278 [sym_kAsm; sym_kBegin; sym_kClass; sym_kConst;
   sym_kConstructor; sym_kDestructor; sym_kExports; sym_kFunction]; ACTIONS 1016 [sym_kInline];
   ACTIONS 8278 [sym_kLabel; sym_kProcedure; sym_kResourcestring; sym_kThreadvar; sym_kType;
   sym_kUses; sym_kVar]].

(** State 2479. *)
Definition ts_parse_table_2479 : parse_row :=
  [STATE 2670 [sym__procAttribute]; STATE 15598 [sym_procAttribute];
   STATE 2592 [aux_sym_declProcFwd_repeat1]; ACTIONS 14567 [anon_sym_LBRACK];
   ACTIONS 8308 [aux_sym_ppUsesBlock_token1]; ACTIONS 3 [sym__space];
   ACTIONS 5 [sym_ppDirective]; ACTIONS 3 [sym_comment]; ACTIONS 8308 [sym_identifier];
   ACTIONS 1016 [sym_kDefault; sym_kNodefault]; ACTIONS 11641 [sym_kDispId];
   ACTIONS 8308 [sym_kGeneric; sym_kOperator]; ACTIONS 11643 [sym_kPublic];
   ACTIONS 1016 [sym_kStatic; sym_kVirtual; sym_kAbstract; sym_kDynamic; sym_kOverride;
   sym_kOverload; sym_kReintroduce; sym_kStdcall; sym_kCdecl; sym_kCppdecl; sym_kPascal;
   sym_kRegister; sym_kMwpascal]; ACTIONS 11645 [sym_kMessage]; ACTIONS 11647 [sym_kDeprecated];
   ACTIONS 1016 [sym_kExperimental; sym_kPlatform; sym_kUnimplemented; sym_kCvar];
   ACTIONS 11649 [sym_kExport]; ACTIONS 1016 [sym_kFar; sym_kNear; sym_kSafecall; sym_kAssembler;
   sym_kNostackframe; sym_kInterrupt; sym_kNoreturn; sym_kIocheck; sym_kLocal; sym_kHardfloat;
   sym_kSoftfloat; sym_kMs_abi_default; sym_kMs_abi_cdecl; sym_kSaveregisters;
   sym_kSysv_abi_default; sym_kSysv_abi_cdecl; sym_kVectorcall; sym_kVarargs; sym_kWinapi];
   ACTIONS 11651 [sym_kAlias]; ACTIONS 8308 [sym_kAsm; sym_kBegin; sym_kClass; sym_kConst;
   sym_kConstructor; sym_kDestructor; sym_kExports; sym_kFunction]; ACTIONS 1016 [sym_kInline];
   ACTIONS 8308 [sym_kLabel; sym_kProcedure; sym_kResourcestring; sym_kThreadvar; sym_kType;
   sym_kUses; sym_kVar]].

(** State 2480. *)
Definition ts_parse_table_2480 : parse_row :=
  [STATE 2670 [sym__procAttribute]; STATE 15598 [sym_procAttribute];
   STATE 2490 [aux_sym_declProcFwd_repeat1]; ACTIONS 14570 [anon_sym_LBRACK];
   ACTIONS 8336 [aux_sym_ppUsesBlock_token1]; ACTIONS 3 [sym__space];
   ACTIONS 5 [sym_ppDirective]; ACTIONS 3 [sym_comment]; ACTIONS 8336 [sym_identifier];
   ACTIONS 1016 [sym_kDefault; sym_kNodefault]; ACTIONS 11641 [sym_kDispId];
   ACTIONS 8336 [sym_kGeneric; sym_kOperator]; ACTIONS 11643 [sym_kPublic];
   ACTIONS 1016 [sym_kStatic; sym_kVirtual; sym_kAbstract; sym_kDynamic; sym_kOverride;
   sym_kOverload; sym_kReintroduce; sym_kStdcall; sym_kCdecl; sym_kCppdecl; sym_kPascal;
   sym_kRegister; sym_kMwpascal]; ACTIONS 11645 [sym_kMessage]; ACTIONS 11647 [sym_kDeprecated];
   ACTIONS 1016 [sym_kExperimental; sym_kPlatform; sym_kUnimplemented; sym_kCvar];
   ACTIONS 11649 [sym_kExport]; ACTIONS 1016 [sym_kFar; sym_kNear; sym_kSafecall; sym_kAssembler;
   sym_kNostackframe; sym_kInterrupt; sym_kNoreturn; sym_kIocheck; sym_kLocal; sym_kHardfloat;
   sym_kSoftfloat; sym_kMs_abi_default; sym_kMs_abi_cdecl; sym_kSaveregisters;
   sym_kSysv_abi_default; sym_kSysv_abi_cdecl; sym_kVectorcall; sym_kVarargs; sym_kWinapi];
   ACTIONS 11651 [sym_kAlias]; ACTIONS 8336 [sym_kAsm; sym_kBegin; sym_kClass; sym_kConst;
   sym_kConstructor; sym_kDestructor; sym_kExports; sym_kFunction]; ACTIONS 1016 [sym_kInline];
   ACTIONS 8336 [sym_kLabel; sym_kProcedure; sym_kResourcestring; sym_kThreadvar; sym_kType;
   sym_kUses; sym_kVar]].

(** State 2481. *)
Definition ts_parse_table_2481 : parse_row :=
  [ACTIONS 9974 [anon_sym_LBRACK; aux_sym_ppUsesBlock_token1]; ACTIONS 3 [sym__space];
   ACTIONS 5 [sym_ppDirective]; ACTIONS 3 [sym_comment]; ACTIONS 9974 [sym_kDefault;
   sym_kNodefault; sym_kDispId; sym_kGeneric; sym_kOperator; sym_kPublic; sym_kStatic;
   sym_kVirtual; sym_kAbstract; sym_kDynamic; sym_kOverride; sym_kOverload; sym_kReintroduce;
   sym_kStdcall; sym_kCdecl; sym_kCppdecl; sym_kPascal; sym_kRegister; sym_kMwpascal;
   sym_kMessage; sym_kDeprecated; sym_kExperimental; sym_kPlatform; sym_kUnimplemented;
   sym_kCvar; sym_kExport; sym_kFar; sym_kNear; sym_kSafecall; sym_kAssembler; sym_kNostackframe;
   sym_kInterrupt; sym_kNoreturn; sym_kIocheck; sym_kLocal; sym_kHardfloat; sym_kSoftfloat;
   sym_kMs_abi_default; sym_kMs_abi_cdecl; sym_kSaveregisters; sym_kSysv_abi_default;
   sym_kSysv_abi_cdecl; sym_kVectorcall; sym_kVarargs; sym_kWinapi; sym_kAlias; sym_kClass;
   sym_kConst; sym_kConstructor; sym_kDestructor; sym_kEnd; sym_kExports; sym_kFinalization;
   sym_kFunction; sym_kImplementation; sym_kInitialization; sym_kInline; sym_kInterface;
   sym_kLabel; sym_kProcedure; sym_kProperty; sym_kResourcestring; sym_kThreadvar; sym_kType;
   sym_kUses; sym_kVar]].

(** State 2482. *)
Definition ts_parse_table_2482 : parse_row :=
  [STATE 2670 [sym__procAttribute]; STATE 15598 [sym_procAttribute];
   STATE 2592 [aux_sym_declProcFwd_repeat1]; ACTIONS 14573 [anon_sym_LBRACK];
   ACTIONS 8420 [aux_sym_ppUsesBlock_token1]; ACTIONS 3 [sym__space];
   ACTIONS 5 [sym_ppDirective]; ACTIONS 3 [sym_comment]; ACTIONS 8420 [sym_identifier];
   ACTIONS 1016 [sym_kDefault; sym_kNodefault]; ACTIONS 11641 [sym_kDispId];
   ACTIONS 8420 [sym_kGeneric; sym_kOperator]; ACTIONS 11643 [sym_kPublic];
   ACTIONS 1016 [sym_kStatic; sym_kVirtual; sym_kAbstract; sym_kDynamic; sym_kOverride;
   sym_kOverload; sym_kReintroduce; sym_kStdcall; sym_kCdecl; sym_kCppdecl; sym_kPascal;
   sym_kRegister; sym_kMwpascal]; ACTIONS 11645 [sym_kMessage]; ACTIONS 11647 [sym_kDeprecated];
   ACTIONS 1016 [sym_kExperimental; sym_kPlatform; sym_kUnimplemented; sym_kCvar];
   ACTIONS 11649 [sym_kExport]; ACTIONS 1016 [sym_kFar; sym_kNear; sym_kSafecall; sym_kAssembler;
   sym_kNostackframe; sym_kInterrupt; sym_kNoreturn; sym_kIocheck; sym_kLocal; sym_kHardfloat;
   sym_kSoftfloat; sym_kMs_abi_default; sym_kMs_abi_cdecl; sym_kSaveregisters;
   sym_kSysv_abi_default; sym_kSysv_abi_cdecl; sym_kVectorcall; sym_kVarargs; sym_kWinapi];
   ACTIONS 11651 [sym_kAlias]; ACTIONS 8420 [sym_kAsm; sym_kBegin; sym_kClass; sym_kConst;
   sym_kConstructor; sym_kDestructor; sym_kExports; sym_kFunction]; ACTIONS 1016 [sym_kInline];
   ACTIONS 8420 [sym_kLabel; sym_kProcedure; sym_kResourcestring; sym_kThreadvar; sym_kType;
   sym_kUses; sym_kVar]].

(** State 2483. *)
Definition ts_parse_table_2483 : parse_row :=
  [ACTIONS 9850 [anon_sym_LBRACK; aux_sym_ppUsesBlock_token1]; ACTIONS 3 [sym__space];
   ACTIONS 5 [sym_ppDirective]; ACTIONS 3 [sym_comment]; ACTIONS 9850 [sym_kDefault;
   sym_kNodefault; sym_kDispId; sym_kGeneric; sym_kOperator; sym_kPublic; sym_kStatic;
   sym_kVirtual; sym_kAbstract; sym_kDynamic; sym_kOverride; sym_kOverload; sym_kReintroduce;
   sym_kStdcall; sym_kCdecl; sym_kCppdecl; sym_kPascal; sym_kRegister; sym_kMwpascal;
   sym_kMessage; sym_kDeprecated; sym_kExperimental; sym_kPlatform; sym_kUnimplemented;
   sym_kCvar; sym_kExport; sym_kFar; sym_kNear; sym_kSafecall; sym_kAssembler; sym_kNostackframe;
   sym_kInterrupt; sym_kNoreturn; sym_kIocheck; sym_kLocal; sym_kHardfloat; sym_kSoftfloat;
   sym_kMs_abi_default; sym_kMs_abi_cdecl; sym_kSaveregisters; sym_kSysv_abi_default;
   sym_kSysv_abi_cdecl; sym_kVectorcall; sym_kVarargs; sym_kWinapi; sym_kAlias; sym_kClass;
   sym_kConst; sym_kConstructor; sym_kDestructor; sym_kEnd; sym_kExports; sym_kFinalization;
   sym_kFunction; sym_kImplementation; sym_kInitialization; sym_kInline; sym_kInterface;
   sym_kLabel; sym_kProcedure; sym_kProperty; sym_kResourcestring; sym_kThreadvar; sym_kType;
   sym_kUses; sym_kVar]].

(** State 2484. *)
Definition ts_parse_table_2484 : parse_row :=
  [ACTIONS 9850 [anon_sym_LBRACK; aux_sym_ppUsesBlock_token1]; ACTIONS 3 [sym__space];
   ACTIONS 5 [sym_ppDirective]; ACTIONS 3 [sym_comment]; ACTIONS 9850 [sym_kDefault;
   sym_kNodefault; sym_kDispId; sym_kGeneric; sym_kOperator; sym_kPublic; sym_kStatic;
   sym_kVirtual; sym_kAbstract; sym_kDynamic; sym_kOverride; sym_kOverload; sym_kReintroduce;
   sym_kStdcall; sym_kCdecl; sym_kCppdecl; sym_kPascal; sym_kRegister; sym_kMwpascal;
   sym_kMessage; sym_kDeprecated; sym_kExperimental; sym_kPlatform; sym_kUnimplemented;
   sym_kCvar; sym_kExport; sym_kFar; sym_kNear; sym_kSafecall; sym_kAssembler; sym_kNostackframe;
   sym_kInterrupt; sym_kNoreturn; sym_kIocheck; sym_kLocal; sym_kHardfloat; sym_kSoftfloat;
   sym_kMs_abi_default; sym_kMs_abi_cdecl; sym_kSaveregisters; sym_kSysv_abi_default;
   sym_kSysv_abi_cdecl; sym_kVectorcall; sym_kVarargs; sym_kWinapi; sym_kAlias; sym_kClass;
   sym_kConst; sym_kConstructor; sym_kDestructor; sym_kEnd; sym_kExports; sym_kFinalization;
   sym_kFunction; sym_kImplementation; sym_kInitialization; sym_kInline; sym_kInterface;
   sym_kLabel; sym_kProcedure; sym_kProperty; sym_kResourcestring; sym_kThreadvar; sym_kType;
   sym_kUses; sym_kVar]].

(** State 2485. *)
Definition ts_parse_table_2485 : parse_row :=
  [ACTIONS 10634 [anon_sym_LBRACK; aux_sym_ppUsesBlock_token1]; ACTIONS 3 [sym__space];
   ACTIONS 5 [sym_ppDirective]; ACTIONS 3 [sym_comment]; ACTIONS 10634 [sym_kDefault;
   sym_kNodefault; sym_kDispId; sym_kGeneric; sym_kOperator; sym_kPublic; sym_kStatic;
   sym_kVirtual; sym_kAbstract; sym_kDynamic; sym_kOverride; sym_kOverload; sym_kReintroduce;
   sym_kStdcall; sym_kCdecl; sym_kCppdecl; sym_kPascal; sym_kRegister; sym_kMwpascal;
   sym_kMessage; sym_kDeprecated; sym_kExperimental; sym_kPlatform; sym_kUnimplemented;
   sym_kCvar; sym_kExport; sym_kFar; sym_kNear; sym_kSafecall; sym_kAssembler; sym_kNostackframe;
   sym_kInterrupt; sym_kNoreturn; sym_kIocheck; sym_kLocal; sym_kHardfloat; sym_kSoftfloat;
   sym_kMs_abi_default; sym_kMs_abi_cdecl; sym_kSaveregisters; sym_kSysv_abi_default;
   sym_kSysv_abi_cdecl; sym_kVectorcall; sym_kVarargs; sym_kWinapi; sym_kAlias; sym_kClass;
   sym_kConst; sym_kConstructor; sym_kDestructor; sym_kEnd; sym_kExports; sym_kFinalization;
   sym_kFunction; sym_kImplementation; sym_kInitialization; sym_kInline; sym_kInterface;
   sym_kLabel; sym_kProcedure; sym_kProperty; sym_kResourcestring; sym_kThreadvar; sym_kType;
   sym_kUses; sym_kVar]].

(** State 2486. *)
Definition ts_parse_table_2486 : parse_row :=
  [STATE 2663 [sym__procAttribute]; STATE 15213 [sym_procAttribute];
   STATE 2552 [aux_sym_declProcFwd_repeat1]; ACTIONS 7546 [ts_builtin_sym_end];
   ACTIONS 14576 [anon_sym_LBRACK]; ACTIONS 7546 [aux_sym_ppUsesBlock_token1];
   ACTIONS 3 [sym__space]; ACTIONS 5 [sym_ppDirective]; ACTIONS 3 [sym_comment];
   ACTIONS 7546 [sym_identifier]; ACTIONS 1016 [sym_kDefault; sym_kNodefault];
   ACTIONS 11641 [sym_kDispId]; ACTIONS 7546 [sym_kGeneric; sym_kOperator];
   ACTIONS 11643 [sym_kPublic]; ACTIONS 1016 [sym_kStatic; sym_kVirtual; sym_kAbstract;
   sym_kDynamic; sym_kOverride; sym_kOverload; sym_kReintroduce; sym_kStdcall; sym_kCdecl;
   sym_kCppdecl; sym_kPascal; sym_kRegister; sym_kMwpascal]; ACTIONS 11645 [sym_kMessage];
   ACTIONS 11647 [sym_kDeprecated]; ACTIONS 1016 [sym_kExperimental; sym_kPlatform;
   sym_kUnimplemented; sym_kCvar]; ACTIONS 11649 [sym_kExport]; ACTIONS 1016 [sym_kFar;
   sym_kNear; sym_kSafecall; sym_kAssembler; sym_kNostackframe; sym_kInterrupt; sym_kNoreturn;
   sym_kIocheck; sym_kLocal; sym_kHardfloat; sym_kSoftfloat; sym_kMs_abi_default;
   sym_kMs_abi_cdecl; sym_kSaveregisters; sym_kSysv_abi_default; sym_kSysv_abi_cdecl;
   sym_kVectorcall; sym_kVarargs; sym_kWinapi]; ACTIONS 11651 [sym_kAlias];
   ACTIONS 7546 [sym_kBegin; sym_kClass; sym_kConst; sym_kConstructor; sym_kDestructor;
   sym_kExports; sym_kFunction]; ACTIONS 1016 [sym_kInline]; ACTIONS 7546 [sym_kLabel;
   sym_kProcedure; sym_kResourcestring; sym_kThreadvar; sym_kType; sym_kUses; sym_kVar]].

(** State 2487. *)
Definition ts_parse_table_2487 : parse_row :=
  [STATE 2663 [sym__procAttribute]; STATE 15213 [sym_procAttribute];
   STATE 2514 [aux_sym_declProcFwd_repeat1]; ACTIONS 9336 [ts_builtin_sym_end];
   ACTIONS 14579 [anon_sym_LBRACK]; ACTIONS 9336 [aux_sym_ppUsesBlock_token1];
   ACTIONS 3 [sym__space]; ACTIONS 5 [sym_ppDirective]; ACTIONS 3 [sym_comment];
   ACTIONS 9336 [sym_identifier]; ACTIONS 1016 [sym_kDefault; sym_kNodefault];
   ACTIONS 11641 [sym_kDispId]; ACTIONS 9336 [sym_kGeneric; sym_kOperator];
   ACTIONS 11643 [sym_kPublic]; ACTIONS 1016 [sym_kStatic; sym_kVirtual; sym_kAbstract;
   sym_kDynamic; sym_kOverride; sym_kOverload; sym_kReintroduce; sym_kStdcall; sym_kCdecl;
   sym_kCppdecl; sym_kPascal; sym_kRegister; sym_kMwpascal]; ACTIONS 11645 [sym_kMessage];
   ACTIONS 11647 [sym_kDeprecated]; ACTIONS 1016 [sym_kExperimental; sym_kPlatform;
   sym_kUnimplemented; sym_kCvar]; ACTIONS 11649 [sym_kExport]; ACTIONS 1016 [sym_kFar;
   sym_kNear; sym_kSafecall; sym_kAssembler; sym_kNostackframe; sym_kInterrupt; sym_kNoreturn;
   sym_kIocheck; sym_kLocal; sym_kHardfloat; sym_kSoftfloat; sym_kMs_abi_default;
   sym_kMs_abi_cdecl; sym_kSaveregisters; sym_kSysv_abi_default; sym_kSysv_abi_cdecl;
   sym_kVectorcall; sym_kVarargs; sym_kWinapi]; ACTIONS 11651 [sym_kAlias];
   ACTIONS 9336 [sym_kBegin; sym_kClass; sym_kConst; sym_kConstructor; sym_kDestructor;
   sym_kExports; sym_kFunction]; ACTIONS 1016 [sym_kInline]; ACTIONS 9336 [sym_kLabel;
   sym_kProcedure; sym_kResourcestring; sym_kThreadvar; sym_kType; sym_kUses; sym_kVar]].

(** State 2488. *)
Definition ts_parse_table_2488 : parse_row :=
  [STATE 2670 [sym__procAttribute]; STATE 15598 [sym_procAttribute];
   STATE 2592 [aux_sym_declProcFwd_repeat1]; ACTIONS 14582 [anon_sym_LBRACK];
   ACTIONS 8476 [aux_sym_ppUsesBlock_token1]; ACTIONS 3 [sym__space];
   ACTIONS 5 [sym_ppDirective]; ACTIONS 3 [sym_comment]; ACTIONS 8476 [sym_identifier];
   ACTIONS 1016 [sym_kDefault; sym_kNodefault]; ACTIONS 11641 [sym_kDispId];
   ACTIONS 8476 [sym_kGeneric; sym_kOperator]; ACTIONS 11643 [sym_kPublic];
   ACTIONS 1016 [sym_kStatic; sym_kVirtual; sym_kAbstract; sym_kDynamic; sym_kOverride;
   sym_kOverload; sym_kReintroduce; sym_kStdcall; sym_kCdecl; sym_kCppdecl; sym_kPascal;
   sym_kRegister; sym_kMwpascal]; ACTIONS 11645 [sym_kMessage]; ACTIONS 11647 [sym_kDeprecated];
   ACTIONS 1016 [sym_kExperimental; sym_kPlatform; sym_kUnimplemented; sym_kCvar];
   ACTIONS 11649 [sym_kExport]; ACTIONS 1016 [sym_kFar; sym_kNear; sym_kSafecall; sym_kAssembler;
   sym_kNostackframe; sym_kInterrupt; sym_kNoreturn; sym_kIocheck; sym_kLocal; sym_kHardfloat;
   sym_kSoftfloat; sym_kMs_abi_default; sym_kMs_abi_cdecl; sym_kSaveregisters;
   sym_kSysv_abi_default; sym_kSysv_abi_cdecl; sym_kVectorcall; sym_kVarargs; sym_kWinapi];
   ACTIONS 11651 [sym_kAlias]; ACTIONS 8476 [sym_kAsm; sym_kBegin; sym_kClass; sym_kConst;
   sym_kConstructor; sym_kDestructor; sym_kExports; sym_kFunction]; ACTIONS 1016 [sym_kInline];
   ACTIONS 8476 [sym_kLabel; sym_kProcedure; sym_kResourcestring; sym_kThreadvar; sym_kType;
   sym_kUses; sym_kVar]].

(** State 2489. *)
Definition ts_parse_table_2489 : parse_row :=
  [STATE 2670 [sym__procAttribute]; STATE 15598 [sym_procAttribute];
   STATE 2493 [aux_sym_declProcFwd_repeat1]; ACTIONS 14585 [anon_sym_LBRACK];
   ACTIONS 8504 [aux_sym_ppUsesBlock_token1]; ACTIONS 3 [sym__space];
   ACTIONS 5 [sym_ppDirective]; ACTIONS 3 [sym_comment]; ACTIONS 8504 [sym_identifier];
   ACTIONS 1016 [sym_kDefault; sym_kNodefault]; ACTIONS 11641 [sym_kDispId];
   ACTIONS 8504 [sym_kGeneric; sym_kOperator]; ACTIONS 11643 [sym_kPublic];
   ACTIONS 1016 [sym_kStatic; sym_kVirtual; sym_kAbstract; sym_kDynamic; sym_kOverride;
   sym_kOverload; sym_kReintroduce; sym_kStdcall; sym_kCdecl; sym_kCppdecl; sym_kPascal;
   sym_kRegister; sym_kMwpascal]; ACTIONS 11645 [sym_kMessage]; ACTIONS 11647 [sym_kDeprecated];
   ACTIONS 1016 [sym_kExperimental; sym_kPlatform; sym_kUnimplemented; sym_kCvar];
   ACTIONS 11649 [sym_kExport]; ACTIONS 1016 [sym_kFar; sym_kNear; sym_kSafecall; sym_kAssembler;
   sym_kNostackframe; sym_kInterrupt; sym_kNoreturn; sym_kIocheck; sym_kLocal; sym_kHardfloat;
   sym_kSoftfloat; sym_kMs_abi_default; sym_kMs_abi_cdecl; sym_kSaveregisters;
   sym_kSysv_abi_default; sym_kSysv_abi_cdecl; sym_kVectorcall; sym_kVarargs; sym_kWinapi];
   ACTIONS 11651 [sym_kAlias]; ACTIONS 8504 [sym_kAsm; sym_kBegin; sym_kClass; sym_kConst;
   sym_kConstructor; sym_kDestructor; sym_kExports; sym_kFunction]; ACTIONS 1016 [sym_kInline];
   ACTIONS 8504 [sym_kLabel; sym_kProcedure; sym_kResourcestring; sym_kThreadvar; sym_kType;
   sym_kUses; sym_kVar]].

(** State 2490. *)
Definition ts_parse_table_2490 : parse_row :=
  [STATE 2670 [sym__procAttribute]; STATE 15598 [sym_procAttribute];
   STATE 2592 [aux_sym_declProcFwd_repeat1]; ACTIONS 14588 [anon_sym_LBRACK];
   ACTIONS 8532 [aux_sym_ppUsesBlock_token1]; ACTIONS 3 [sym__space];
   ACTIONS 5 [sym_ppDirective]; ACTIONS 3 [sym_comment]; ACTIONS 8532 [sym_identifier];
   ACTIONS 1016 [sym_kDefault; sym_kNodefault]; ACTIONS 11641 [sym_kDispId];
   ACTIONS 8532 [sym_kGeneric; sym_kOperator]; ACTIONS 11643 [sym_kPublic];
   ACTIONS 1016 [sym_kStatic; sym_kVirtual; sym_kAbstract; sym_kDynamic; sym_kOverride;
   sym_kOverload; sym_kReintroduce; sym_kStdcall; sym_kCdecl; sym_kCppdecl; sym_kPascal;
   sym_kRegister; sym_kMwpascal]; ACTIONS 11645 [sym_kMessage]; ACTIONS 11647 [sym_kDeprecated];
   ACTIONS 1016 [sym_kExperimental; sym_kPlatform; sym_kUnimplemented; sym_kCvar];
   ACTIONS 11649 [sym_kExport]; ACTIONS 1016 [sym_kFar; sym_kNear; sym_kSafecall; sym_kAssembler;
   sym_kNostackframe; sym_kInterrupt; sym_kNoreturn; sym_kIocheck; sym_kLocal; sym_kHardfloat;
   sym_kSoftfloat; sym_kMs_abi_default; sym_kMs_abi_cdecl; sym_kSaveregisters;
   sym_kSysv_abi_default; sym_kSysv_abi_cdecl; sym_kVectorcall; sym_kVarargs; sym_kWinapi];
   ACTIONS 11651 [sym_kAlias]; ACTIONS 8532 [sym_kAsm; sym_kBegin; sym_kClass; sym_kConst;
   sym_kConstructor; sym_kDestructor; sym_kExports; sym_kFunction]; ACTIONS 1016 [sym_kInline];
   ACTIONS 8532 [sym_kLabel; sym_kProcedure; sym_kResourcestring; sym_kThreadvar; sym_kType;
   sym_kUses; sym_kVar]].

(** State 2491. *)
Definition ts_parse_table_2491 : parse_row :=
  [STATE 2663 [sym__procAttribute]; STATE 15213 [sym_procAttribute];
   STATE 2507 [aux_sym_declProcFwd_repeat1]; ACTIONS 9408 [ts_builtin_sym_end];
   ACTIONS 14591 [anon_sym_LBRACK]; ACTIONS 9408 [aux_sym_ppUsesBlock_token1];
   ACTIONS 3 [sym__space]; ACTIONS 5 [sym_ppDirective]; ACTIONS 3 [sym_comment];
   ACTIONS 9408 [sym_identifier]; ACTIONS 1016 [sym_kDefault; sym_kNodefault];
   ACTIONS 11641 [sym_kDispId]; ACTIONS 9408 [sym_kGeneric; sym_kOperator];
   ACTIONS 11643 [sym_kPublic]; ACTIONS 1016 [sym_kStatic; sym_kVirtual; sym_kAbstract;
   sym_kDynamic; sym_kOverride; sym_kOverload; sym_kReintroduce; sym_kStdcall; sym_kCdecl;
   sym_kCppdecl; sym_kPascal; sym_kRegister; sym_kMwpascal]; ACTIONS 11645 [sym_kMessage];
   ACTIONS 11647 [sym_kDeprecated]; ACTIONS 1016 [sym_kExperimental; sym_kPlatform;
   sym_kUnimplemented; sym_kCvar]; ACTIONS 11649 [sym_kExport]; ACTIONS 1016 [sym_kFar;
   sym_kNear; sym_kSafecall; sym_kAssembler; sym_kNostackframe; sym_kInterrupt; sym_kNoreturn;
   sym_kIocheck; sym_kLocal; sym_kHardfloat; sym_kSoftfloat; sym_kMs_abi_default;
   sym_kMs_abi_cdecl; sym_kSaveregisters; sym_kSysv_abi_default; sym_kSysv_abi_cdecl;
   sym_kVectorcall; sym_kVarargs; sym_kWinapi]; ACTIONS 11651 [sym_kAlias];
   ACTIONS 9408 [sym_kBegin; sym_kClass; sym_kConst; sym_kConstructor; sym_kDestructor;
   sym_kExports; sym_kFunction]; ACTIONS 1016 [sym_kInline]; ACTIONS 9408 [sym_kLabel;
   sym_kProcedure; sym_kResourcestring; sym_kThreadvar; sym_kType; sym_kUses; sym_kVar]].

(** State 2492. *)
Definition ts_parse_table_2492 : parse_row :=
  [ACTIONS 10638 [anon_sym_LBRACK; aux_sym_ppUsesBlock_token1]; ACTIONS 3 [sym__space];
   ACTIONS 5 [sym_ppDirective]; ACTIONS 3 [sym_comment]; ACTIONS 10638 [sym_kDefault;
   sym_kNodefault; sym_kDispId; sym_kGeneric; sym_kOperator; sym_kPublic; sym_kStatic;
   sym_kVirtual; sym_kAbstract; sym_kDynamic; sym_kOverride; sym_kOverload; sym_kReintroduce;
   sym_kStdcall; sym_kCdecl; sym_kCppdecl; sym_kPascal; sym_kRegister; sym_kMwpascal;
   sym_kMessage; sym_kDeprecated; sym_kExperimental; sym_kPlatform; sym_kUnimplemented;
   sym_kCvar; sym_kExport; sym_kFar; sym_kNear; sym_kSafecall; sym_kAssembler; sym_kNostackframe;
   sym_kInterrupt; sym_kNoreturn; sym_kIocheck; sym_kLocal; sym_kHardfloat; sym_kSoftfloat;
   sym_kMs_abi_default; sym_kMs_abi_cdecl; sym_kSaveregisters; sym_kSysv_abi_default;
   sym_kSysv_abi_cdecl; sym_kVectorcall; sym_kVarargs; sym_kWinapi; sym_kAlias; sym_kClass;
   sym_kConst; sym_kConstructor; sym_kDestructor; sym_kEnd; sym_kExports; sym_kFinalization;
   sym_kFunction; sym_kImplementation; sym_kInitialization; sym_kInline; sym_kInterface;
   sym_kLabel; sym_kProcedure; sym_kProperty; sym_kResourcestring; sym_kThreadvar; sym_kType;
   sym_kUses; sym_kVar]].

(** State 2493. *)
Definition ts_parse_table_2493 : parse_row :=
  [STATE 2670 [sym__procAttribute]; STATE 15598 [sym_procAttribute];
   STATE 2592 [aux_sym_declProcFwd_repeat1]; ACTIONS 14594 [anon_sym_LBRACK];
   ACTIONS 8756 [aux_sym_ppUsesBlock_token1]; ACTIONS 3 [sym__space];
   ACTIONS 5 [sym_ppDirective]; ACTIONS 3 [sym_comment]; ACTIONS 8756 [sym_identifier];
   ACTIONS 1016 [sym_kDefault; sym_kNodefault]; ACTIONS 11641 [sym_kDispId];
   ACTIONS 8756 [sym_kGeneric; sym_kOperator]; ACTIONS 11643 [sym_kPublic];
   ACTIONS 1016 [sym_kStatic; sym_kVirtual; sym_kAbstract; sym_kDynamic; sym_kOverride;
   sym_kOverload; sym_kReintroduce; sym_kStdcall; sym_kCdecl; sym_kCppdecl; sym_kPascal;
   sym_kRegister; sym_kMwpascal]; ACTIONS 11645 [sym_kMessage]; ACTIONS 11647 [sym_kDeprecated];
   ACTIONS 1016 [sym_kExperimental; sym_kPlatform; sym_kUnimplemented; sym_kCvar];
   ACTIONS 11649 [sym_kExport]; ACTIONS 1016 [sym_kFar; sym_kNear; sym_kSafecall; sym_kAssembler;
   sym_kNostackframe; sym_kInterrupt; sym_kNoreturn; sym_kIocheck; sym_kLocal; sym_kHardfloat;
   sym_kSoftfloat; sym_kMs_abi_default; sym_kMs_abi_cdecl; sym_kSaveregisters;
   sym_kSysv_abi_default; sym_kSysv_abi_cdecl; sym_kVectorcall; sym_kVarargs; sym_kWinapi];
   ACTIONS 11651 [sym_kAlias]; ACTIONS 8756 [sym_kAsm; sym_kBegin; sym_kClass; sym_kConst;
   sym_kConstructor; sym_kDestructor; sym_kExports; sym_kFunction]; ACTIONS 1016 [sym_kInline];
   ACTIONS 8756 [sym_kLabel; sym_kProcedure; sym_kResourcestring; sym_kThreadvar; sym_kType;
   sym_kUses; sym_kVar]].

(** State 2494. *)
Definition ts_parse_table_2494 : parse_row :=
  [ACTIONS 10634 [anon_sym_LBRACK; aux_sym_ppUsesBlock_token1]; ACTIONS 3 [sym__space];
   ACTIONS 5 [sym_ppDirective]; ACTIONS 3 [sym_comment]; ACTIONS 10634 [sym_kDefault;
   sym_kNodefault; sym_kDispId; sym_kGeneric; sym_kOperator; sym_kPublic; sym_kStatic;
   sym_kVirtual; sym_kAbstract; sym_kDynamic; sym_kOverride; sym_kOverload; sym_kReintroduce;
   sym_kStdcall; sym_kCdecl; sym_kCppdecl; sym_kPascal; sym_kRegister; sym_kMwpascal;
   sym_kMessage; sym_kDeprecated; sym_kExperimental; sym_kPlatform; sym_kUnimplemented;
   sym_kCvar; sym_kExport; sym_kFar; sym_kNear; sym_kSafecall; sym_kAssembler; sym_kNostackframe;
   sym_kInterrupt; sym_kNoreturn; sym_kIocheck; sym_kLocal; sym_kHardfloat; sym_kSoftfloat;
   sym_kMs_abi_default; sym_kMs_abi_cdecl; sym_kSaveregisters; sym_kSysv_abi_default;
   sym_kSysv_abi_cdecl; sym_kVectorcall; sym_kVarargs; sym_kWinapi; sym_kAlias; sym_kBegin;
   sym_kClass; sym_kConst; sym_kConstructor; sym_kDestructor; sym_kEnd; sym_kExports;
   sym_kFinalization; sym_kFunction; sym_kImplementation; sym_kInitialization; sym_kInline;
   sym_kInterface; sym_kLabel; sym_kProcedure; sym_kResourcestring; sym_kThreadvar; sym_kType;
   sym_kUses; sym_kVar]].

(** State 2495. *)
Definition ts_parse_table_2495 : parse_row :=
  [STATE 2663 [sym__procAttribute]; STATE 15213 [sym_procAttribute];
   STATE 2567 [aux_sym_declProcFwd_repeat1]; ACTIONS 8448 [ts_builtin_sym_end];
   ACTIONS 14597 [anon_sym_LBRACK]; ACTIONS 8448 [aux_sym_ppUsesBlock_token1];
   ACTIONS 3 [sym__space]; ACTIONS 5 [sym_ppDirective]; ACTIONS 3 [sym_comment];
   ACTIONS 8448 [sym_identifier]; ACTIONS 1016 [sym_kDefault; sym_kNodefault];
   ACTIONS 11641 [sym_kDispId]; ACTIONS 8448 [sym_kGeneric; sym_kOperator];
   ACTIONS 11643 [sym_kPublic]; ACTIONS 1016 [sym_kStatic; sym_kVirtual; sym_kAbstract;
   sym_kDynamic; sym_kOverride; sym_kOverload; sym_kReintroduce; sym_kStdcall; sym_kCdecl;
   sym_kCppdecl; sym_kPascal; sym_kRegister; sym_kMwpascal]; ACTIONS 11645 [sym_kMessage];
   ACTIONS 11647 [sym_kDeprecated]; ACTIONS 1016 [sym_kExperimental; sym_kPlatform;
   sym_kUnimplemented; sym_kCvar]; ACTIONS 11649 [sym_kExport]; ACTIONS 1016 [sym_kFar;
   sym_kNear; sym_kSafecall; sym_kAssembler; sym_kNostackframe; sym_kInterrupt; sym_kNoreturn;
   sym_kIocheck; sym_kLocal; sym_kHardfloat; sym_kSoftfloat; sym_kMs_abi_default;
   sym_kMs_abi_cdecl; sym_kSaveregisters; sym_kSysv_abi_default; sym_kSysv_abi_cdecl;
   sym_kVectorcall; sym_kVarargs; sym_kWinapi]; ACTIONS 11651 [sym_kAlias];
   ACTIONS 8448 [sym_kBegin; sym_kClass; sym_kConst; sym_kConstructor; sym_kDestructor;
   sym_kExports; sym_kFunction]; ACTIONS 1016 [sym_kInline]; ACTIONS 8448 [sym_kLabel;
   sym_kProcedure; sym_kResourcestring; sym_kThreadvar; sym_kType; sym_kUses; sym_kVar]].

(** State 2496. *)
Definition ts_parse_table_2496 : parse_row :=
  [ACTIONS 10796 [anon_sym_LBRACK; aux_sym_ppUsesBlock_token1]; ACTIONS 3 [sym__space];
   ACTIONS 5 [sym_ppDirective]; ACTIONS 3 [sym_comment]; ACTIONS 10796 [sym_kDefault;
   sym_kNodefault; sym_kDispId; sym_kGeneric; sym_kOperator; sym_kPublished; sym_kPublic;
   sym_kProtected; sym_kPrivate; sym_kStrict; sym_kRequired; sym_kOptional; sym_kStatic;
   sym_kVirtual; sym_kAbstract; sym_kDynamic; sym_kOverride; sym_kOverload; sym_kReintroduce;
   sym_kStdcall; sym_kCdecl; sym_kCppdecl; sym_kPascal; sym_kRegister; sym_kMwpascal;
   sym_kMessage; sym_kDeprecated; sym_kExperimental; sym_kPlatform; sym_kUnimplemented;
   sym_kCvar; sym_kExport; sym_kFar; sym_kNear; sym_kSafecall; sym_kAssembler; sym_kNostackframe;
   sym_kInterrupt; sym_kNoreturn; sym_kIocheck; sym_kLocal; sym_kHardfloat; sym_kSoftfloat;
   sym_kMs_abi_default; sym_kMs_abi_cdecl; sym_kSaveregisters; sym_kSysv_abi_default;
   sym_kSysv_abi_cdecl; sym_kVectorcall; sym_kVarargs; sym_kWinapi; sym_kAlias; sym_kCase;
   sym_kClass; sym_kConst; sym_kConstructor; sym_kDestructor; sym_kEnd; sym_kFunction;
   sym_kInline; sym_kProcedure; sym_kProperty; sym_kResourcestring; sym_kThreadvar; sym_kType;
   sym_kVar]].

(** State 2497. *)
Definition ts_parse_table_2497 : parse_row :=
  [ACTIONS 10566 [anon_sym_LBRACK; aux_sym_ppUsesBlock_token1]; ACTIONS 3 [sym__space];
   ACTIONS 5 [sym_ppDirective]; ACTIONS 3 [sym_comment]; ACTIONS 10566 [sym_kDefault;
   sym_kNodefault; sym_kDispId; sym_kGeneric; sym_kOperator; sym_kPublic; sym_kStatic;
   sym_kVirtual; sym_kAbstract; sym_kDynamic; sym_kOverride; sym_kOverload; sym_kReintroduce;
   sym_kStdcall; sym_kCdecl; sym_kCppdecl; sym_kPascal; sym_kRegister; sym_kMwpascal;
   sym_kMessage; sym_kDeprecated; sym_kExperimental; sym_kPlatform; sym_kUnimplemented;
   sym_kCvar; sym_kExport; sym_kFar; sym_kNear; sym_kSafecall; sym_kAssembler; sym_kNostackframe;
   sym_kInterrupt; sym_kNoreturn; sym_kIocheck; sym_kLocal; sym_kHardfloat; sym_kSoftfloat;
   sym_kMs_abi_default; sym_kMs_abi_cdecl; sym_kSaveregisters; sym_kSysv_abi_default;
   sym_kSysv_abi_cdecl; sym_kVectorcall; sym_kVarargs; sym_kWinapi; sym_kAlias; sym_kBegin;
   sym_kClass; sym_kConst; sym_kConstructor; sym_kDestructor; sym_kEnd; sym_kExports;
   sym_kFinalization; sym_kFunction; sym_kImplementation; sym_kInitialization; sym_kInline;
   sym_kInterface; sym_kLabel; sym_kProcedure; sym_kResourcestring; sym_kThreadvar; sym_kType;
   sym_kUses; sym_kVar]].

(** State 2498. *)
Definition ts_parse_table_2498 : parse_row :=
  [STATE 2670 [sym__procAttribute]; STATE 15598 [sym_procAttribute];
   STATE 2542 [aux_sym_declProcFwd_repeat1]; ACTIONS 14600 [anon_sym_LBRACK];
   ACTIONS 9336 [aux_sym_ppUsesBlock_token1]; ACTIONS 3 [sym__space];
   ACTIONS 5 [sym_ppDirective]; ACTIONS 3 [sym_comment]; ACTIONS 9336 [sym_identifier];
   ACTIONS 1016 [sym_kDefault; sym_kNodefault]; ACTIONS 11641 [sym_kDispId];
   ACTIONS 9336 [sym_kGeneric; sym_kOperator]; ACTIONS 11643 [sym_kPublic];
   ACTIONS 1016 [sym_kStatic; sym_kVirtual; sym_kAbstract; sym_kDynamic; sym_kOverride;
   sym_kOverload; sym_kReintroduce; sym_kStdcall; sym_kCdecl; sym_kCppdecl; sym_kPascal;
   sym_kRegister; sym_kMwpascal]; ACTIONS 11645 [sym_kMessage]; ACTIONS 11647 [sym_kDeprecated];
   ACTIONS 1016 [sym_kExperimental; sym_kPlatform; sym_kUnimplemented; sym_kCvar];
   ACTIONS 11649 [sym_kExport]; ACTIONS 1016 [sym_kFar; sym_kNear; sym_kSafecall; sym_kAssembler;
   sym_kNostackframe; sym_kInterrupt; sym_kNoreturn; sym_kIocheck; sym_kLocal; sym_kHardfloat;
   sym_kSoftfloat; sym_kMs_abi_default; sym_kMs_abi_cdecl; sym_kSaveregisters;
   sym_kSysv_abi_default; sym_kSysv_abi_cdecl; sym_kVectorcall; sym_kVarargs; sym_kWinapi];
   ACTIONS 11651 [sym_kAlias]; ACTIONS 9336 [sym_kAsm; sym_kBegin; sym_kClass; sym_kConst;
   sym_kConstructor; sym_kDestructor; sym_kExports; sym_kFunction]; ACTIONS 1016 [sym_kInline];
   ACTIONS 9336 [sym_kLabel; sym_kProcedure; sym_kResourcestring; sym_kThreadvar; sym_kType;
   sym_kUses; sym_kVar]].

(** State 2499. *)
Definition ts_parse_table_2499 : parse_row :=
  [STATE 2670 [sym__procAttribute]; STATE 15598 [sym_procAttribute];
   STATE 2592 [aux_sym_declProcFwd_repeat1]; ACTIONS 14603 [anon_sym_LBRACK];
   ACTIONS 9408 [aux_sym_ppUsesBlock_token1]; ACTIONS 3 [sym__space];
   ACTIONS 5 [sym_ppDirective]; ACTIONS 3 [sym_comment]; ACTIONS 9408 [sym_identifier];
   ACTIONS 1016 [sym_kDefault; sym_kNodefault]; ACTIONS 11641 [sym_kDispId];
   ACTIONS 9408 [sym_kGeneric; sym_kOperator]; ACTIONS 11643 [sym_kPublic];
   ACTIONS 1016 [sym_kStatic; sym_kVirtual; sym_kAbstract; sym_kDynamic; sym_kOverride;
   sym_kOverload; sym_kReintroduce; sym_kStdcall; sym_kCdecl; sym_kCppdecl; sym_kPascal;
   sym_kRegister; sym_kMwpascal]; ACTIONS 11645 [sym_kMessage]; ACTIONS 11647 [sym_kDeprecated];
   ACTIONS 1016 [sym_kExperimental; sym_kPlatform; sym_kUnimplemented; sym_kCvar];
   ACTIONS 11649 [sym_kExport]; ACTIONS 1016 [sym_kFar; sym_kNear; sym_kSafecall; sym_kAssembler;
   sym_kNostackframe; sym_kInterrupt; sym_kNoreturn; sym_kIocheck; sym_kLocal; sym_kHardfloat;
   sym_kSoftfloat; sym_kMs_abi_default; sym_kMs_abi_cdecl; sym_kSaveregisters;
   sym_kSysv_abi_default; sym_kSysv_abi_cdecl; sym_kVectorcall; sym_kVarargs; sym_kWinapi];
   ACTIONS 11651 [sym_kAlias]; ACTIONS 9408 [sym_kAsm; sym_kBegin; sym_kClass; sym_kConst;
   sym_kConstructor; sym_kDestructor; sym_kExports; sym_kFunction]; ACTIONS 1016 [sym_kInline];
   ACTIONS 9408 [sym_kLabel; sym_kProcedure; sym_kResourcestring; sym_kThreadvar; sym_kType;
   sym_kUses; sym_kVar]].

(** State 2500. *)
Definition ts_parse_table_2500 : parse_row :=
  [ACTIONS 10576 [anon_sym_LBRACK; aux_sym_ppUsesBlock_token1]; ACTIONS 3 [sym__space];
   ACTIONS 5 [sym_ppDirective]; ACTIONS 3 [sym_comment]; ACTIONS 10576 [sym_kDefault;
   sym_kNodefault; sym_kDispId; sym_kGeneric; sym_kOperator; sym_kPublic; sym_kStatic;
   sym_kVirtual; sym_kAbstract; sym_kDynamic; sym_kOverride; sym_kOverload; sym_kReintroduce;
   sym_kStdcall; sym_kCdecl; sym_kCppdecl; sym_kPascal; sym_kRegister; sym_kMwpascal;
   sym_kMessage; sym_kDeprecated; sym_kExperimental; sym_kPlatform; sym_kUnimplemented;
   sym_kCvar; sym_kExport; sym_kFar; sym_kNear; sym_kSafecall; sym_kAssembler; sym_kNostackframe;
   sym_kInterrupt; sym_kNoreturn; sym_kIocheck; sym_kLocal; sym_kHardfloat; sym_kSoftfloat;
   sym_kMs_abi_default; sym_kMs_abi_cdecl; sym_kSaveregisters; sym_kSysv_abi_default;
   sym_kSysv_abi_cdecl; sym_kVectorcall; sym_kVarargs; sym_kWinapi; sym_kAlias; sym_kBegin;
   sym_kClass; sym_kConst; sym_kConstructor; sym_kDestructor; sym_kEnd; sym_kExports;
   sym_kFinalization; sym_kFunction; sym_kImplementation; sym_kInitialization; sym_kInline;
   sym_kInterface; sym_kLabel; sym_kProcedure; sym_kResourcestring; sym_kThreadvar; sym_kType;
   sym_kUses; sym_kVar]].

(** State 2501. *)
Definition ts_parse_table_2501 : parse_row :=
  [ACTIONS 10796 [anon_sym_LBRACK; aux_sym_ppUsesBlock_token1]; ACTIONS 3 [sym__space];
   ACTIONS 5 [sym_ppDirective]; ACTIONS 3 [sym_comment]; ACTIONS 10796 [sym_kDefault;
   sym_kNodefault; sym_kDispId; sym_kGeneric; sym_kOperator; sym_kPublic; sym_kStatic;
   sym_kVirtual; sym_kAbstract; sym_kDynamic; sym_kOverride; sym_kOverload; sym_kReintroduce;
   sym_kStdcall; sym_kCdecl; sym_kCppdecl; sym_kPascal; sym_kRegister; sym_kMwpascal;
   sym_kMessage; sym_kDeprecated; sym_kExperimental; sym_kPlatform; sym_kUnimplemented;
   sym_kCvar; sym_kExport; sym_kFar; sym_kNear; sym_kSafecall; sym_kAssembler; sym_kNostackframe;
   sym_kInterrupt; sym_kNoreturn; sym_kIocheck; sym_kLocal; sym_kHardfloat; sym_kSoftfloat;
   sym_kMs_abi_default; sym_kMs_abi_cdecl; sym_kSaveregisters; sym_kSysv_abi_default;
   sym_kSysv_abi_cdecl; sym_kVectorcall; sym_kVarargs; sym_kWinapi; sym_kAlias; sym_kClass;
   sym_kConst; sym_kConstructor; sym_kDestructor; sym_kEnd; sym_kExports; sym_kFinalization;
   sym_kFunction; sym_kImplementation; sym_kInitialization; sym_kInline; sym_kInterface;
   sym_kLabel; sym_kProcedure; sym_kProperty; sym_kResourcestring; sym_kThreadvar; sym_kType;
   sym_kUses; sym_kVar]].

(** State 2502. *)
Definition ts_parse_table_2502 : parse_row :=
  [STATE 2661 [sym__procAttribute]; STATE 15438 [sym_procAttribute];
   STATE 2515 [aux_sym_declProcFwd_repeat1]; ACTIONS 14606 [anon_sym_LBRACK];
   ACTIONS 8448 [aux_sym_ppUsesBlock_token1]; ACTIONS 3 [sym__space];
   ACTIONS 5 [sym_ppDirective]; ACTIONS 3 [sym_comment]; ACTIONS 8448 [sym_identifier];
   ACTIONS 1016 [sym_kDefault; sym_kNodefault]; ACTIONS 11641 [sym_kDispId];
   ACTIONS 8448 [sym_kGeneric; sym_kOperator]; ACTIONS 11643 [sym_kPublic];
   ACTIONS 1016 [sym_kStatic; sym_kVirtual; sym_kAbstract; sym_kDynamic; sym_kOverride;
   sym_kOverload; sym_kReintroduce; sym_kStdcall; sym_kCdecl; sym_kCppdecl; sym_kPascal;
   sym_kRegister; sym_kMwpascal]; ACTIONS 11645 [sym_kMessage]; ACTIONS 11647 [sym_kDeprecated];
   ACTIONS 1016 [sym_kExperimental; sym_kPlatform; sym_kUnimplemented; sym_kCvar];
   ACTIONS 11649 [sym_kExport]; ACTIONS 1016 [sym_kFar; sym_kNear; sym_kSafecall; sym_kAssembler;
   sym_kNostackframe; sym_kInterrupt; sym_kNoreturn; sym_kIocheck; sym_kLocal; sym_kHardfloat;
   sym_kSoftfloat; sym_kMs_abi_default; sym_kMs_abi_cdecl; sym_kSaveregisters;
   sym_kSysv_abi_default; sym_kSysv_abi_cdecl; sym_kVectorcall; sym_kVarargs; sym_kWinapi];
   ACTIONS 11651 [sym_kAlias]; ACTIONS 8448 [sym_kBegin; sym_kClass; sym_kConst;
   sym_kConstructor; sym_kDestructor; sym_kEnd; sym_kExports; sym_kFunction];
   ACTIONS 1016 [sym_kInline]; ACTIONS 8448 [sym_kLabel; sym_kProcedure; sym_kResourcestring;
   sym_kThreadvar; sym_kType; sym_kUses; sym_kVar]].

(** State 2503. *)
Definition ts_parse_table_2503 : parse_row :=
  [ACTIONS 9946 [anon_sym_LBRACK; aux_sym_ppUsesBlock_token1]; ACTIONS 3 [sym__space];
   ACTIONS 5 [sym_ppDirective]; ACTIONS 3 [sym_comment]; ACTIONS 9946 [sym_kDefault;
   sym_kNodefault; sym_kDispId; sym_kGeneric; sym_kOperator; sym_kPublic; sym_kStatic;
   sym_kVirtual; sym_kAbstract; sym_kDynamic; sym_kOverride; sym_kOverload; sym_kReintroduce;
   sym_kStdcall; sym_kCdecl; sym_kCppdecl; sym_kPascal; sym_kRegister; sym_kMwpascal;
   sym_kMessage; sym_kDeprecated; sym_kExperimental; sym_kPlatform; sym_kUnimplemented;
   sym_kCvar; sym_kExport; sym_kFar; sym_kNear; sym_kSafecall; sym_kAssembler; sym_kNostackframe;
   sym_kInterrupt; sym_kNoreturn; sym_kIocheck; sym_kLocal; sym_kHardfloat; sym_kSoftfloat;
   sym_kMs_abi_default; sym_kMs_abi_cdecl; sym_kSaveregisters; sym_kSysv_abi_default;
   sym_kSysv_abi_cdecl; sym_kVectorcall; sym_kVarargs; sym_kWinapi; sym_kAlias; sym_kClass;
   sym_kConst; sym_kConstructor; sym_kDestructor; sym_kEnd; sym_kExports; sym_kFinalization;
   sym_kFunction; sym_kImplementation; sym_kInitialization; sym_kInline; sym_kInterface;
   sym_kLabel; sym_kProcedure; sym_kProperty; sym_kResourcestring; sym_kThreadvar; sym_kType;
   sym_kUses; sym_kVar]].

(** State 2504. *)
Definition ts_parse_table_2504 : parse_row :=
  [ACTIONS 9822 [anon_sym_LBRACK; aux_sym_ppUsesBlock_token1]; ACTIONS 3 [sym__space];
   ACTIONS 5 [sym_ppDirective]; ACTIONS 3 [sym_comment]; ACTIONS 9822 [sym_kDefault;
   sym_kNodefault; sym_kDispId; sym_kGeneric; sym_kOperator; sym_kPublic; sym_kStatic;
   sym_kVirtual; sym_kAbstract; sym_kDynamic; sym_kOverride; sym_kOverload; sym_kReintroduce;
   sym_kStdcall; sym_kCdecl; sym_kCppdecl; sym_kPascal; sym_kRegister; sym_kMwpascal;
   sym_kMessage; sym_kDeprecated; sym_kExperimental; sym_kPlatform; sym_kUnimplemented;
   sym_kCvar; sym_kExport; sym_kFar; sym_kNear; sym_kSafecall; sym_kAssembler; sym_kNostackframe;
   sym_kInterrupt; sym_kNoreturn; sym_kIocheck; sym_kLocal; sym_kHardfloat; sym_kSoftfloat;
   sym_kMs_abi_default; sym_kMs_abi_cdecl; sym_kSaveregisters; sym_kSysv_abi_default;
   sym_kSysv_abi_cdecl; sym_kVectorcall; sym_kVarargs; sym_kWinapi; sym_kAlias; sym_kClass;
   sym_kConst; sym_kConstructor; sym_kDestructor; sym_kEnd; sym_kExports; sym_kFinalization;
   sym_kFunction; sym_kImplementation; sym_kInitialization; sym_kInline; sym_kInterface;
   sym_kLabel; sym_kProcedure; sym_kProperty; sym_kResourcestring; sym_kThreadvar; sym_kType;
   sym_kUses; sym_kVar]].

(** State 2505. *)
Definition ts_parse_table_2505 : parse_row :=
  [ACTIONS 9858 [anon_sym_LBRACK; aux_sym_ppUsesBlock_token1]; ACTIONS 3 [sym__space];
   ACTIONS 5 [sym_ppDirective]; ACTIONS 3 [sym_comment]; ACTIONS 9858 [sym_kDefault;
   sym_kNodefault; sym_kDispId; sym_kGeneric; sym_kOperator; sym_kPublic; sym_kStatic;
   sym_kVirtual; sym_kAbstract; sym_kDynamic; sym_kOverride; sym_kOverload; sym_kReintroduce;
   sym_kStdcall; sym_kCdecl; sym_kCppdecl; sym_kPascal; sym_kRegister; sym_kMwpascal;
   sym_kMessage; sym_kDeprecated; sym_kExperimental; sym_kPlatform; sym_kUnimplemented;
   sym_kCvar; sym_kExport; sym_kFar; sym_kNear; sym_kSafecall; sym_kAssembler; sym_kNostackframe;
   sym_kInterrupt; sym_kNoreturn; sym_kIocheck; sym_kLocal; sym_kHardfloat; sym_kSoftfloat;
   sym_kMs_abi_default; sym_kMs_abi_cdecl; sym_kSaveregisters; sym_kSysv_abi_default;
   sym_kSysv_abi_cdecl; sym_kVectorcall; sym_kVarargs; sym_kWinapi; sym_kAlias; sym_kClass;
   sym_kConst; sym_kConstructor; sym_kDestructor; sym_kEnd; sym_kExports; sym_kFinalization;
   sym_kFunction; sym_kImplementation; sym_kInitialization; sym_kInline; sym_kInterface;
   sym_kLabel; sym_kProcedure; sym_kProperty; sym_kResourcestring; sym_kThreadvar; sym_kType;
   sym_kUses; sym_kVar]].

(** State 2506. *)
Definition ts_parse_table_2506 : parse_row :=
  [ACTIONS 10590 [anon_sym_LBRACK; aux_sym_ppUsesBlock_token1]; ACTIONS 3 [sym__space];
   ACTIONS 5 [sym_ppDirective]; ACTIONS 3 [sym_comment]; ACTIONS 10590 [sym_kDefault;
   sym_kNodefault; sym_kDispId; sym_kGeneric; sym_kOperator; sym_kPublic; sym_kStatic;
   sym_kVirtual; sym_kAbstract; sym_kDynamic; sym_kOverride; sym_kOverload; sym_kReintroduce;
   sym_kStdcall; sym_kCdecl; sym_kCppdecl; sym_kPascal; sym_kRegister; sym_kMwpascal;
   sym_kMessage; sym_kDeprecated; sym_kExperimental; sym_kPlatform; sym_kUnimplemented;
   sym_kCvar; sym_kExport; sym_kFar; sym_kNear; sym_kSafecall; sym_kAssembler; sym_kNostackframe;
   sym_kInterrupt; sym_kNoreturn; sym_kIocheck; sym_kLocal; sym_kHardfloat; sym_kSoftfloat;
   sym_kMs_abi_default; sym_kMs_abi_cdecl; sym_kSaveregisters; sym_kSysv_abi_default;
   sym_kSysv_abi_cdecl; sym_kVectorcall; sym_kVarargs; sym_kWinapi; sym_kAlias; sym_kBegin;
   sym_kClass; sym_kConst; sym_kConstructor; sym_kDestructor; sym_kEnd; sym_kExports;
   sym_kFinalization; sym_kFunction; sym_kImplementation; sym_kInitialization; sym_kInline;
   sym_kInterface; sym_kLabel; sym_kProcedure; sym_kResourcestring; sym_kThreadvar; sym_kType;
   sym_kUses; sym_kVar]].

(** State 2507. *)
Definition ts_parse_table_2507 : parse_row :=
  [STATE 2663 [sym__procAttribute]; STATE 15213 [sym_procAttribute];
   STATE 2507 [aux_sym_declProcFwd_repeat1]; ACTIONS 8588 [ts_builtin_sym_end];
   ACTIONS 14609 [anon_sym_LBRACK]; ACTIONS 8588 [aux_sym_ppUsesBlock_token1];
   ACTIONS 3 [sym__space]; ACTIONS 5 [sym_ppDirective]; ACTIONS 3 [sym_comment];
   ACTIONS 8588 [sym_identifier]; ACTIONS 8595 [sym_kDefault; sym_kNodefault];
   ACTIONS 8598 [sym_kDispId]; ACTIONS 8588 [sym_kGeneric; sym_kOperator];
   ACTIONS 8601 [sym_kPublic]; ACTIONS 8595 [sym_kStatic; sym_kVirtual; sym_kAbstract;
   sym_kDynamic; sym_kOverride; sym_kOverload; sym_kReintroduce; sym_kStdcall; sym_kCdecl;
   sym_kCppdecl; sym_kPascal; sym_kRegister; sym_kMwpascal]; ACTIONS 8604 [sym_kMessage];
   ACTIONS 8607 [sym_kDeprecated]; ACTIONS 8595 [sym_kExperimental; sym_kPlatform;
   sym_kUnimplemented; sym_kCvar]; ACTIONS 8610 [sym_kExport]; ACTIONS 8595 [sym_kFar; sym_kNear;
   sym_kSafecall; sym_kAssembler; sym_kNostackframe; sym_kInterrupt; sym_kNoreturn; sym_kIocheck;
   sym_kLocal; sym_kHardfloat; sym_kSoftfloat; sym_kMs_abi_default; sym_kMs_abi_cdecl;
   sym_kSaveregisters; sym_kSysv_abi_default; sym_kSysv_abi_cdecl; sym_kVectorcall; sym_kVarargs;
   sym_kWinapi]; ACTIONS 8613 [sym_kAlias]; ACTIONS 8588 [sym_kBegin; sym_kClass; sym_kConst;
   sym_kConstructor; sym_kDestructor; sym_kExports; sym_kFunction]; ACTIONS 8595 [sym_kInline];
   ACTIONS 8588 [sym_kLabel; sym_kProcedure; sym_kResourcestring; sym_kThreadvar; sym_kType;
   sym_kUses; sym_kVar]].

(** State 2508. *)
Definition ts_parse_table_2508 : parse_row :=
  [ACTIONS 10594 [anon_sym_LBRACK; aux_sym_ppUsesBlock_token1]; ACTIONS 3 [sym__space];
   ACTIONS 5 [sym_ppDirective]; ACTIONS 3 [sym_comment]; ACTIONS 10594 [sym_kDefault;
   sym_kNodefault; sym_kDispId; sym_kGeneric; sym_kOperator; sym_kPublic; sym_kStatic;
   sym_kVirtual; sym_kAbstract; sym_kDynamic; sym_kOverride; sym_kOverload; sym_kReintroduce;
   sym_kStdcall; sym_kCdecl; sym_kCppdecl; sym_kPascal; sym_kRegister; sym_kMwpascal;
   sym_kMessage; sym_kDeprecated; sym_kExperimental; sym_kPlatform; sym_kUnimplemented;
   sym_kCvar; sym_kExport; sym_kFar; sym_kNear; sym_kSafecall; sym_kAssembler; sym_kNostackframe;
   sym_kInterrupt; sym_kNoreturn; sym_kIocheck; sym_kLocal; sym_kHardfloat; sym_kSoftfloat;
   sym_kMs_abi_default; sym_kMs_abi_cdecl; sym_kSaveregisters; sym_kSysv_abi_default;
   sym_kSysv_abi_cdecl; sym_kVectorcall; sym_kVarargs; sym_kWinapi; sym_kAlias; sym_kBegin;
   sym_kClass; sym_kConst; sym_kConstructor; sym_kDestructor; sym_kEnd; sym_kExports;
   sym_kFinalization; sym_kFunction; sym_kImplementation; sym_kInitialization; sym_kInline;
   sym_kInterface; sym_kLabel; sym_kProcedure; sym_kResourcestring; sym_kThreadvar; sym_kType;
   sym_kUses; sym_kVar]].

(** State 2509. *)
Definition ts_parse_table_2509 : parse_row :=
  [ACTIONS 10594 [anon_sym_LBRACK; aux_sym_ppUsesBlock_token1]; ACTIONS 3 [sym__space];
   ACTIONS 5 [sym_ppDirective]; ACTIONS 3 [sym_comment]; ACTIONS 10594 [sym_kDefault;
   sym_kNodefault; sym_kDispId; sym_kGeneric; sym_kOperator; sym_kPublic; sym_kStatic;
   sym_kVirtual; sym_kAbstract; sym_kDynamic; sym_kOverride; sym_kOverload; sym_kReintroduce;
   sym_kStdcall; sym_kCdecl; sym_kCppdecl; sym_kPascal; sym_kRegister; sym_kMwpascal;
   sym_kMessage; sym_kDeprecated; sym_kExperimental; sym_kPlatform; sym_kUnimplemented;
   sym_kCvar; sym_kExport; sym_kFar; sym_kNear; sym_kSafecall; sym_kAssembler; sym_kNostackframe;
   sym_kInterrupt; sym_kNoreturn; sym_kIocheck; sym_kLocal; sym_kHardfloat; sym_kSoftfloat;
   sym_kMs_abi_default; sym_kMs_abi_cdecl; sym_kSaveregisters; sym_kSysv_abi_default;
   sym_kSysv_abi_cdecl; sym_kVectorcall; sym_kVarargs; sym_kWinapi; sym_kAlias; sym_kBegin;
   sym_kClass; sym_kConst; sym_kConstructor; sym_kDestructor; sym_kEnd; sym_kExports;
   sym_kFinalization; sym_kFunction; sym_kImplementation; sym_kInitialization; sym_kInline;
   sym_kInterface; sym_kLabel; sym_kProcedure; sym_kResourcestring; sym_kThreadvar; sym_kType;
   sym_kUses; sym_kVar]].

(** State 2510. *)
Definition ts_parse_table_2510 : parse_row :=
  [STATE 2663 [sym__procAttribute]; STATE 15213 [sym_procAttribute];
   STATE 2507 [aux_sym_declProcFwd_repeat1]; ACTIONS 8756 [ts_builtin_sym_end];
   ACTIONS 14612 [anon_sym_LBRACK]; ACTIONS 8756 [aux_sym_ppUsesBlock_token1];
   ACTIONS 3 [sym__space]; ACTIONS 5 [sym_ppDirective]; ACTIONS 3 [sym_comment];
   ACTIONS 8756 [sym_identifier]; ACTIONS 1016 [sym_kDefault; sym_kNodefault];
   ACTIONS 11641 [sym_kDispId]; ACTIONS 8756 [sym_kGeneric; sym_kOperator];
   ACTIONS 11643 [sym_kPublic]; ACTIONS 1016 [sym_kStatic; sym_kVirtual; sym_kAbstract;
   sym_kDynamic; sym_kOverride; sym_kOverload; sym_kReintroduce; sym_kStdcall; sym_kCdecl;
   sym_kCppdecl; sym_kPascal; sym_kRegister; sym_kMwpascal]; ACTIONS 11645 [sym_kMessage];
   ACTIONS 11647 [sym_kDeprecated]; ACTIONS 1016 [sym_kExperimental; sym_kPlatform;
   sym_kUnimplemented; sym_kCvar]; ACTIONS 11649 [sym_kExport]; ACTIONS 1016 [sym_kFar;
   sym_kNear; sym_kSafecall; sym_kAssembler; sym_kNostackframe; sym_kInterrupt; sym_kNoreturn;
   sym_kIocheck; sym_kLocal; sym_kHardfloat; sym_kSoftfloat; sym_kMs_abi_default;
   sym_kMs_abi_cdecl; sym_kSaveregisters; sym_kSysv_abi_default; sym_kSysv_abi_cdecl;
   sym_kVectorcall; sym_kVarargs; sym_kWinapi]; ACTIONS 11651 [sym_kAlias];
   ACTIONS 8756 [sym_kBegin; sym_kClass; sym_kConst; sym_kConstructor; sym_kDestructor;
   sym_kExports; sym_kFunction]; ACTIONS 1016 [sym_kInline]; ACTIONS 8756 [sym_kLabel;
   sym_kProcedure; sym_kResourcestring; sym_kThreadvar; sym_kType; sym_kUses; sym_kVar]].

(** State 2511. *)
Definition ts_parse_table_2511 : parse_row :=
  [ACTIONS 10566 [anon_sym_LBRACK; aux_sym_ppUsesBlock_token1]; ACTIONS 3 [sym__space];
   ACTIONS 5 [sym_ppDirective]; ACTIONS 3 [sym_comment]; ACTIONS 10566 [sym_kDefault;
   sym_kNodefault; sym_kDispId; sym_kGeneric; sym_kOperator; sym_kPublic; sym_kStatic;
   sym_kVirtual; sym_kAbstract; sym_kDynamic; sym_kOverride; sym_kOverload; sym_kReintroduce;
   sym_kStdcall; sym_kCdecl; sym_kCppdecl; sym_kPascal; sym_kRegister; sym_kMwpascal;
   sym_kMessage; sym_kDeprecated; sym_kExperimental; sym_kPlatform; sym_kUnimplemented;
   sym_kCvar; sym_kExport; sym_kFar; sym_kNear; sym_kSafecall; sym_kAssembler; sym_kNostackframe;
   sym_kInterrupt; sym_kNoreturn; sym_kIocheck; sym_kLocal; sym_kHardfloat; sym_kSoftfloat;
   sym_kMs_abi_default; sym_kMs_abi_cdecl; sym_kSaveregisters; sym_kSysv_abi_default;
   sym_kSysv_abi_cdecl; sym_kVectorcall; sym_kVarargs; sym_kWinapi; sym_kAlias; sym_kClass;
   sym_kConst; sym_kConstructor; sym_kDestructor; sym_kEnd; sym_kExports; sym_kFinalization;
   sym_kFunction; sym_kImplementation; sym_kInitialization; sym_kInline; sym_kInterface;
   sym_kLabel; sym_kProcedure; sym_kProperty; sym_kResourcestring; sym_kThreadvar; sym_kType;
   sym_kUses; sym_kVar]].

(** State 2512. *)
Definition ts_parse_table_2512 : parse_row :=
  [STATE 2661 [sym__procAttribute]; STATE 15438 [sym_procAttribute];
   STATE 2512 [aux_sym_declProcFwd_repeat1]; ACTIONS 14615 [anon_sym_LBRACK];
   ACTIONS 8588 [aux_sym_ppUsesBlock_token1]; ACTIONS 3 [sym__space];
   ACTIONS 5 [sym_ppDirective]; ACTIONS 3 [sym_comment]; ACTIONS 8588 [sym_identifier];
   ACTIONS 8595 [sym_kDefault; sym_kNodefault]; ACTIONS 8598 [sym_kDispId];
   ACTIONS 8588 [sym_kGeneric; sym_kOperator]; ACTIONS 8601 [sym_kPublic];
   ACTIONS 8595 [sym_kStatic; sym_kVirtual; sym_kAbstract; sym_kDynamic; sym_kOverride;
   sym_kOverload; sym_kReintroduce; sym_kStdcall; sym_kCdecl; sym_kCppdecl; sym_kPascal;
   sym_kRegister; sym_kMwpascal]; ACTIONS 8604 [sym_kMessage]; ACTIONS 8607 [sym_kDeprecated];
   ACTIONS 8595 [sym_kExperimental; sym_kPlatform; sym_kUnimplemented; sym_kCvar];
   ACTIONS 8610 [sym_kExport]; ACTIONS 8595 [sym_kFar; sym_kNear; sym_kSafecall; sym_kAssembler;
   sym_kNostackframe; sym_kInterrupt; sym_kNoreturn; sym_kIocheck; sym_kLocal; sym_kHardfloat;
   sym_kSoftfloat; sym_kMs_abi_default; sym_kMs_abi_cdecl; sym_kSaveregisters;
   sym_kSysv_abi_default; sym_kSysv_abi_cdecl; sym_kVectorcall; sym_kVarargs; sym_kWinapi];
   ACTIONS 8613 [sym_kAlias]; ACTIONS 8588 [sym_kBegin; sym_kClass; sym_kConst; sym_kConstructor;
   sym_kDestructor; sym_kEnd; sym_kExports; sym_kFunction]; ACTIONS 8595 [sym_kInline];
   ACTIONS 8588 [sym_kLabel; sym_kProcedure; sym_kResourcestring; sym_kThreadvar; sym_kType;
   sym_kUses; sym_kVar]].

(** State 2513. *)
Definition ts_parse_table_2513 : parse_row :=
  [ACTIONS 10622 [anon_sym_LBRACK; aux_sym_ppUsesBlock_token1]; ACTIONS 3 [sym__space];
   ACTIONS 5 [sym_ppDirective]; ACTIONS 3 [sym_comment]; ACTIONS 10622 [sym_kDefault;
   sym_kNodefault; sym_kDispId; sym_kGeneric; sym_kOperator; sym_kPublic; sym_kStatic;
   sym_kVirtual; sym_kAbstract; sym_kDynamic; sym_kOverride; sym_kOverload; sym_kReintroduce;
   sym_kStdcall; sym_kCdecl; sym_kCppdecl; sym_kPascal; sym_kRegister; sym_kMwpascal;
   sym_kMessage; sym_kDeprecated; sym_kExperimental; sym_kPlatform; sym_kUnimplemented;
   sym_kCvar; sym_kExport; sym_kFar; sym_kNear; sym_kSafecall; sym_kAssembler; sym_kNostackframe;
   sym_kInterrupt; sym_kNoreturn; sym_kIocheck; sym_kLocal; sym_kHardfloat; sym_kSoftfloat;
   sym_kMs_abi_default; sym_kMs_abi_cdecl; sym_kSaveregisters; sym_kSysv_abi_default;
   sym_kSysv_abi_cdecl; sym_kVectorcall; sym_kVarargs; sym_kWinapi; sym_kAlias; sym_kClass;
   sym_kConst; sym_kConstructor; sym_kDestructor; sym_kEnd; sym_kExports; sym_kFinalization;
   sym_kFunction; sym_kImplementation; sym_kInitialization; sym_kInline; sym_kInterface;
   sym_kLabel; sym_kProcedure; sym_kProperty; sym_kResourcestring; sym_kThreadvar; sym_kType;
   sym_kUses; sym_kVar]].

(** State 2514. *)
Definition ts_parse_table_2514 : parse_row :=
  [STATE 2663 [sym__procAttribute]; STATE 15213 [sym_procAttribute];
   STATE 2507 [aux_sym_declProcFwd_repeat1]; ACTIONS 8030 [ts_builtin_sym_end];
   ACTIONS 14618 [anon_sym_LBRACK]; ACTIONS 8030 [aux_sym_ppUsesBlock_token1];
   ACTIONS 3 [sym__space]; ACTIONS 5 [sym_ppDirective]; ACTIONS 3 [sym_comment];
   ACTIONS 8030 [sym_identifier]; ACTIONS 1016 [sym_kDefault; sym_kNodefault];
   ACTIONS 11641 [sym_kDispId]; ACTIONS 8030 [sym_kGeneric; sym_kOperator];
   ACTIONS 11643 [sym_kPublic]; ACTIONS 1016 [sym_kStatic; sym_kVirtual; sym_kAbstract;
   sym_kDynamic; sym_kOverride; sym_kOverload; sym_kReintroduce; sym_kStdcall; sym_kCdecl;
   sym_kCppdecl; sym_kPascal; sym_kRegister; sym_kMwpascal]; ACTIONS 11645 [sym_kMessage];
   ACTIONS 11647 [sym_kDeprecated]; ACTIONS 1016 [sym_kExperimental; sym_kPlatform;
   sym_kUnimplemented; sym_kCvar]; ACTIONS 11649 [sym_kExport]; ACTIONS 1016 [sym_kFar;
   sym_kNear; sym_kSafecall; sym_kAssembler; sym_kNostackframe; sym_kInterrupt; sym_kNoreturn;
   sym_kIocheck; sym_kLocal; sym_kHardfloat; sym_kSoftfloat; sym_kMs_abi_default;
   sym_kMs_abi_cdecl; sym_kSaveregisters; sym_kSysv_abi_default; sym_kSysv_abi_cdecl;
   sym_kVectorcall; sym_kVarargs; sym_kWinapi]; ACTIONS 11651 [sym_kAlias];
   ACTIONS 8030 [sym_kBegin; sym_kClass; sym_kConst; sym_kConstructor; sym_kDestructor;
   sym_kExports; sym_kFunction]; ACTIONS 1016 [sym_kInline]; ACTIONS 8030 [sym_kLabel;
   sym_kProcedure; sym_kResourcestring; sym_kThreadvar; sym_kType; sym_kUses; sym_kVar]].

(** State 2515. *)
Definition ts_parse_table_2515 : parse_row :=
  [STATE 2661 [sym__procAttribute]; STATE 15438 [sym_procAttribute];
   STATE 2512 [aux_sym_declProcFwd_repeat1]; ACTIONS 14621 [anon_sym_LBRACK];
   ACTIONS 8842 [aux_sym_ppUsesBlock_token1]; ACTIONS 3 [sym__space];
   ACTIONS 5 [sym_ppDirective]; ACTIONS 3 [sym_comment]; ACTIONS 8842 [sym_identifier];
   ACTIONS 1016 [sym_kDefault; sym_kNodefault]; ACTIONS 11641 [sym_kDispId];
   ACTIONS 8842 [sym_kGeneric; sym_kOperator]; ACTIONS 11643 [sym_kPublic];
   ACTIONS 1016 [sym_kStatic; sym_kVirtual; sym_kAbstract; sym_kDynamic; sym_kOverride;
   sym_kOverload; sym_kReintroduce; sym_kStdcall; sym_kCdecl; sym_kCppdecl; sym_kPascal;
   sym_kRegister; sym_kMwpascal]; ACTIONS 11645 [sym_kMessage]; ACTIONS 11647 [sym_kDeprecated];
   ACTIONS 1016 [sym_kExperimental; sym_kPlatform; sym_kUnimplemented; sym_kCvar];
   ACTIONS 11649 [sym_kExport]; ACTIONS 1016 [sym_kFar; sym_kNear; sym_kSafecall; sym_kAssembler;
   sym_kNostackframe; sym_kInterrupt; sym_kNoreturn; sym_kIocheck; sym_kLocal; sym_kHardfloat;
   sym_kSoftfloat; sym_kMs_abi_default; sym_kMs_abi_cdecl; sym_kSaveregisters;
   sym_kSysv_abi_default; sym_kSysv_abi_cdecl; sym_kVectorcall; sym_kVarargs; sym_kWinapi];
   ACTIONS 11651 [sym_kAlias]; ACTIONS 8842 [sym_kBegin; sym_kClass; sym_kConst;
   sym_kConstructor; sym_kDestructor; sym_kEnd; sym_kExports; sym_kFunction];
   ACTIONS 1016 [sym_kInline]; ACTIONS 8842 [sym_kLabel; sym_kProcedure; sym_kResourcestring;
   sym_kThreadvar; sym_kType; sym_kUses; sym_kVar]].

(** State 2516. *)
Definition ts_parse_table_2516 : parse_row :=
  [STATE 2661 [sym__procAttribute]; STATE 15438 [sym_procAttribute];
   STATE 2528 [aux_sym_declProcFwd_repeat1]; ACTIONS 14624 [anon_sym_LBRACK];
   ACTIONS 8870 [aux_sym_ppUsesBlock_token1]; ACTIONS 3 [sym__space];
   ACTIONS 5 [sym_ppDirective]; ACTIONS 3 [sym_comment]; ACTIONS 8870 [sym_identifier];
   ACTIONS 1016 [sym_kDefault; sym_kNodefault]; ACTIONS 11641 [sym_kDispId];
   ACTIONS 8870 [sym_kGeneric; sym_kOperator]; ACTIONS 11643 [sym_kPublic];
   ACTIONS 1016 [sym_kStatic; sym_kVirtual; sym_kAbstract; sym_kDynamic; sym_kOverride;
   sym_kOverload; sym_kReintroduce; sym_kStdcall; sym_kCdecl; sym_kCppdecl; sym_kPascal;
   sym_kRegister; sym_kMwpascal]; ACTIONS 11645 [sym_kMessage]; ACTIONS 11647 [sym_kDeprecated];
   ACTIONS 1016 [sym_kExperimental; sym_kPlatform; sym_kUnimplemented; sym_kCvar];
   ACTIONS 11649 [sym_kExport]; ACTIONS 1016 [sym_kFar; sym_kNear; sym_kSafecall; sym_kAssembler;
   sym_kNostackframe; sym_kInterrupt; sym_kNoreturn; sym_kIocheck; sym_kLocal; sym_kHardfloat;
   sym_kSoftfloat; sym_kMs_abi_default; sym_kMs_abi_cdecl; sym_kSaveregisters;
   sym_kSysv_abi_default; sym_kSysv_abi_cdecl; sym_kVectorcall; sym_kVarargs; sym_kWinapi];
   ACTIONS 11651 [sym_kAlias]; ACTIONS 8870 [sym_kBegin; sym_kClass; sym_kConst;
   sym_kConstructor; sym_kDestructor; sym_kEnd; sym_kExports; sym_kFunction];
   ACTIONS 1016 [sym_kInline]; ACTIONS 8870 [sym_kLabel; sym_kProcedure; sym_kResourcestring;
   sym_kThreadvar; sym_kType; sym_kUses; sym_kVar]].

(** State 2517. *)
Definition ts_parse_table_2517 : parse_row :=
  [STATE 2670 [sym__procAttribute]; STATE 15598 [sym_procAttribute];
   STATE 2478 [aux_sym_declProcFwd_repeat1]; ACTIONS 14627 [anon_sym_LBRACK];
   ACTIONS 7546 [aux_sym_ppUsesBlock_token1]; ACTIONS 3 [sym__space];
   ACTIONS 5 [sym_ppDirective]; ACTIONS 3 [sym_comment]; ACTIONS 7546 [sym_identifier];
   ACTIONS 1016 [sym_kDefault; sym_kNodefault]; ACTIONS 11641 [sym_kDispId];
   ACTIONS 7546 [sym_kGeneric; sym_kOperator]; ACTIONS 11643 [sym_kPublic];
   ACTIONS 1016 [sym_kStatic; sym_kVirtual; sym_kAbstract; sym_kDynamic; sym_kOverride;
   sym_kOverload; sym_kReintroduce; sym_kStdcall; sym_kCdecl; sym_kCppdecl; sym_kPascal;
   sym_kRegister; sym_kMwpascal]; ACTIONS 11645 [sym_kMessage]; ACTIONS 11647 [sym_kDeprecated];
   ACTIONS 1016 [sym_kExperimental; sym_kPlatform; sym_kUnimplemented; sym_kCvar];
   ACTIONS 11649 [sym_kExport]; ACTIONS 1016 [sym_kFar; sym_kNear; sym_kSafecall; sym_kAssembler;
   sym_kNostackframe; sym_kInterrupt; sym_kNoreturn; sym_kIocheck; sym_kLocal; sym_kHardfloat;
   sym_kSoftfloat; sym_kMs_abi_default; sym_kMs_abi_cdecl; sym_kSaveregisters;
   sym_kSysv_abi_default; sym_kSysv_abi_cdecl; sym_kVectorcall; sym_kVarargs; sym_kWinapi];
   ACTIONS 11651 [sym_kAlias]; ACTIONS 7546 [sym_kAsm; sym_kBegin; sym_kClass; sym_kConst;
   sym_kConstructor; sym_kDestructor; sym_kExports; sym_kFunction]; ACTIONS 1016 [sym_kInline];
   ACTIONS 7546 [sym_kLabel; sym_kProcedure; sym_kResourcestring; sym_kThreadvar; sym_kType;
   sym_kUses; sym_kVar]].

(** State 2518. *)
Definition ts_parse_table_2518 : parse_row :=
  [ACTIONS 10576 [anon_sym_LBRACK; aux_sym_ppUsesBlock_token1]; ACTIONS 3 [sym__space];
   ACTIONS 5 [sym_ppDirective]; ACTIONS 3 [sym_comment]; ACTIONS 10576 [sym_kDefault;
   sym_kNodefault; sym_kDispId; sym_kGeneric; sym_kOperator; sym_kPublic; sym_kStatic;
   sym_kVirtual; sym_kAbstract; sym_kDynamic; sym_kOverride; sym_kOverload; sym_kReintroduce;
   sym_kStdcall; sym_kCdecl; sym_kCppdecl; sym_kPascal; sym_kRegister; sym_kMwpascal;
   sym_kMessage; sym_kDeprecated; sym_kExperimental; sym_kPlatform; sym_kUnimplemented;
   sym_kCvar; sym_kExport; sym_kFar; sym_kNear; sym_kSafecall; sym_kAssembler; sym_kNostackframe;
   sym_kInterrupt; sym_kNoreturn; sym_kIocheck; sym_kLocal; sym_kHardfloat; sym_kSoftfloat;
   sym_kMs_abi_default; sym_kMs_abi_cdecl; sym_kSaveregisters; sym_kSysv_abi_default;
   sym_kSysv_abi_cdecl; sym_kVectorcall; sym_kVarargs; sym_kWinapi; sym_kAlias; sym_kClass;
   sym_kConst; sym_kConstructor; sym_kDestructor; sym_kEnd; sym_kExports; sym_kFinalization;
   sym_kFunction; sym_kImplementation; sym_kInitialization; sym_kInline; sym_kInterface;
   sym_kLabel; sym_kProcedure; sym_kProperty; sym_kResourcestring; sym_kThreadvar; sym_kType;
   sym_kUses; sym_kVar]].

(** State 2519. *)
Definition ts_parse_table_2519 : parse_row :=
  [STATE 2661 [sym__procAttribute]; STATE 15438 [sym_procAttribute];
   STATE 2531 [aux_sym_declProcFwd_repeat1]; ACTIONS 14630 [anon_sym_LBRACK];
   ACTIONS 8926 [aux_sym_ppUsesBlock_token1]; ACTIONS 3 [sym__space];
   ACTIONS 5 [sym_ppDirective]; ACTIONS 3 [sym_comment]; ACTIONS 8926 [sym_identifier];
   ACTIONS 1016 [sym_kDefault; sym_kNodefault]; ACTIONS 11641 [sym_kDispId];
   ACTIONS 8926 [sym_kGeneric; sym_kOperator]; ACTIONS 11643 [sym_kPublic];
   ACTIONS 1016 [sym_kStatic; sym_kVirtual; sym_kAbstract; sym_kDynamic; sym_kOverride;
   sym_kOverload; sym_kReintroduce; sym_kStdcall; sym_kCdecl; sym_kCppdecl; sym_kPascal;
   sym_kRegister; sym_kMwpascal]; ACTIONS 11645 [sym_kMessage]; ACTIONS 11647 [sym_kDeprecated];
   ACTIONS 1016 [sym_kExperimental; sym_kPlatform; sym_kUnimplemented; sym_kCvar];
   ACTIONS 11649 [sym_kExport]; ACTIONS 1016 [sym_kFar; sym_kNear; sym_kSafecall; sym_kAssembler;
   sym_kNostackframe; sym_kInterrupt; sym_kNoreturn; sym_kIocheck; sym_kLocal; sym_kHardfloat;
   sym_kSoftfloat; sym_kMs_abi_default; sym_kMs_abi_cdecl; sym_kSaveregisters;
   sym_kSysv_abi_default; sym_kSysv_abi_cdecl; sym_kVectorcall; sym_kVarargs; sym_kWinapi];
   ACTIONS 11651 [sym_kAlias]; ACTIONS 8926 [sym_kBegin; sym_kClass; sym_kConst;
   sym_kConstructor; sym_kDestructor; sym_kEnd; sym_kExports; sym_kFunction];
   ACTIONS 1016 [sym_kInline]; ACTIONS 8926 [sym_kLabel; sym_kProcedure; sym_kResourcestring;
   sym_kThreadvar; sym_kType; sym_kUses; sym_kVar]].

(** State 2520. *)
Definition ts_parse_table_2520 : parse_row :=
  [STATE 2663 [sym__procAttribute]; STATE 15213 [sym_procAttribute];
   STATE 2532 [aux_sym_declProcFwd_repeat1]; ACTIONS 8058 [ts_builtin_sym_end];
   ACTIONS 14633 [anon_sym_LBRACK]; ACTIONS 8058 [aux_sym_ppUsesBlock_token1];
   ACTIONS 3 [sym__space]; ACTIONS 5 [sym_ppDirective]; ACTIONS 3 [sym_comment];
   ACTIONS 8058 [sym_identifier]; ACTIONS 1016 [sym_kDefault; sym_kNodefault];
   ACTIONS 11641 [sym_kDispId]; ACTIONS 8058 [sym_kGeneric; sym_kOperator];
   ACTIONS 11643 [sym_kPublic]; ACTIONS 1016 [sym_kStatic; sym_kVirtual; sym_kAbstract;
   sym_kDynamic; sym_kOverride; sym_kOverload; sym_kReintroduce; sym_kStdcall; sym_kCdecl;
   sym_kCppdecl; sym_kPascal; sym_kRegister; sym_kMwpascal]; ACTIONS 11645 [sym_kMessage];
   ACTIONS 11647 [sym_kDeprecated]; ACTIONS 1016 [sym_kExperimental; sym_kPlatform;
   sym_kUnimplemented; sym_kCvar]; ACTIONS 11649 [sym_kExport]; ACTIONS 1016 [sym_kFar;
   sym_kNear; sym_kSafecall; sym_kAssembler; sym_kNostackframe; sym_kInterrupt; sym_kNoreturn;
   sym_kIocheck; sym_kLocal; sym_kHardfloat; sym_kSoftfloat; sym_kMs_abi_default;
   sym_kMs_abi_cdecl; sym_kSaveregisters; sym_kSysv_abi_default; sym_kSysv_abi_cdecl;
   sym_kVectorcall; sym_kVarargs; sym_kWinapi]; ACTIONS 11651 [sym_kAlias];
   ACTIONS 8058 [sym_kBegin; sym_kClass; sym_kConst; sym_kConstructor; sym_kDestructor;
   sym_kExports; sym_kFunction]; ACTIONS 1016 [sym_kInline]; ACTIONS 8058 [sym_kLabel;
   sym_kProcedure; sym_kResourcestring; sym_kThreadvar; sym_kType; sym_kUses; sym_kVar]].

(** State 2521. *)
Definition ts_parse_table_2521 : parse_row :=
  [STATE 2670 [sym__procAttribute]; STATE 15598 [sym_procAttribute];
   STATE 2479 [aux_sym_declProcFwd_repeat1]; ACTIONS 14636 [anon_sym_LBRACK];
   ACTIONS 7574 [aux_sym_ppUsesBlock_token1]; ACTIONS 3 [sym__space];
   ACTIONS 5 [sym_ppDirective]; ACTIONS 3 [sym_comment]; ACTIONS 7574 [sym_identifier];
   ACTIONS 1016 [sym_kDefault; sym_kNodefault]; ACTIONS 11641 [sym_kDispId];
   ACTIONS 7574 [sym_kGeneric; sym_kOperator]; ACTIONS 11643 [sym_kPublic];
   ACTIONS 1016 [sym_kStatic; sym_kVirtual; sym_kAbstract; sym_kDynamic; sym_kOverride;
   sym_kOverload; sym_kReintroduce; sym_kStdcall; sym_kCdecl; sym_kCppdecl; sym_kPascal;
   sym_kRegister; sym_kMwpascal]; ACTIONS 11645 [sym_kMessage]; ACTIONS 11647 [sym_kDeprecated];
   ACTIONS 1016 [sym_kExperimental; sym_kPlatform; sym_kUnimplemented; sym_kCvar];
   ACTIONS 11649 [sym_kExport]; ACTIONS 1016 [sym_kFar; sym_kNear; sym_kSafecall; sym_kAssembler;
   sym_kNostackframe; sym_kInterrupt; sym_kNoreturn; sym_kIocheck; sym_kLocal; sym_kHardfloat;
   sym_kSoftfloat; sym_kMs_abi_default; sym_kMs_abi_cdecl; sym_kSaveregisters;
   sym_kSysv_abi_default; sym_kSysv_abi_cdecl; sym_kVectorcall; sym_kVarargs; sym_kWinapi];
   ACTIONS 11651 [sym_kAlias]; ACTIONS 7574 [sym_kAsm; sym_kBegin; sym_kClass; sym_kConst;
   sym_kConstructor; sym_kDestructor; sym_kExports; sym_kFunction]; ACTIONS 1016 [sym_kInline];
   ACTIONS 7574 [sym_kLabel; sym_kProcedure; sym_kResourcestring; sym_kThreadvar; sym_kType;
   sym_kUses; sym_kVar]].

(** State 2522. *)
Definition ts_parse_table_2522 : parse_row :=
  [ACTIONS 10590 [anon_sym_LBRACK; aux_sym_ppUsesBlock_token1]; ACTIONS 3 [sym__space];
   ACTIONS 5 [sym_ppDirective]; ACTIONS 3 [sym_comment]; ACTIONS 10590 [sym_kDefault;
   sym_kNodefault; sym_kDispId; sym_kGeneric; sym_kOperator; sym_kPublic; sym_kStatic;
   sym_kVirtual; sym_kAbstract; sym_kDynamic; sym_kOverride; sym_kOverload; sym_kReintroduce;
   sym_kStdcall; sym_kCdecl; sym_kCppdecl; sym_kPascal; sym_kRegister; sym_kMwpascal;
   sym_kMessage; sym_kDeprecated; sym_kExperimental; sym_kPlatform; sym_kUnimplemented;
   sym_kCvar; sym_kExport; sym_kFar; sym_kNear; sym_kSafecall; sym_kAssembler; sym_kNostackframe;
   sym_kInterrupt; sym_kNoreturn; sym_kIocheck; sym_kLocal; sym_kHardfloat; sym_kSoftfloat;
   sym_kMs_abi_default; sym_kMs_abi_cdecl; sym_kSaveregisters; sym_kSysv_abi_default;
   sym_kSysv_abi_cdecl; sym_kVectorcall; sym_kVarargs; sym_kWinapi; sym_kAlias; sym_kClass;
   sym_kConst; sym_kConstructor; sym_kDestructor; sym_kEnd; sym_kExports; sym_kFinalization;
   sym_kFunction; sym_kImplementation; sym_kInitialization; sym_kInline; sym_kInterface;
   sym_kLabel; sym_kProcedure; sym_kProperty; sym_kResourcestring; sym_kThreadvar; sym_kType;
   sym_kUses; sym_kVar]].

(** State 2523. *)
Definition ts_parse_table_2523 : parse_row :=
  [ACTIONS 10594 [anon_sym_LBRACK; aux_sym_ppUsesBlock_token1]; ACTIONS 3 [sym__space];
   ACTIONS 5 [sym_ppDirective]; ACTIONS 3 [sym_comment]; ACTIONS 10594 [sym_kDefault;
   sym_kNodefault; sym_kDispId; sym_kGeneric; sym_kOperator; sym_kPublic; sym_kStatic;
   sym_kVirtual; sym_kAbstract; sym_kDynamic; sym_kOverride; sym_kOverload; sym_kReintroduce;
   sym_kStdcall; sym_kCdecl; sym_kCppdecl; sym_kPascal; sym_kRegister; sym_kMwpascal;
   sym_kMessage; sym_kDeprecated; sym_kExperimental; sym_kPlatform; sym_kUnimplemented;
   sym_kCvar; sym_kExport; sym_kFar; sym_kNear; sym_kSafecall; sym_kAssembler; sym_kNostackframe;
   sym_kInterrupt; sym_kNoreturn; sym_kIocheck; sym_kLocal; sym_kHardfloat; sym_kSoftfloat;
   sym_kMs_abi_default; sym_kMs_abi_cdecl; sym_kSaveregisters; sym_kSysv_abi_default;
   sym_kSysv_abi_cdecl; sym_kVectorcall; sym_kVarargs; sym_kWinapi; sym_kAlias; sym_kClass;
   sym_kConst; sym_kConstructor; sym_kDestructor; sym_kEnd; sym_kExports; sym_kFinalization;
   sym_kFunction; sym_kImplementation; sym_kInitialization; sym_kInline; sym_kInterface;
   sym_kLabel; sym_kProcedure; sym_kProperty; sym_kResourcestring; sym_kThreadvar; sym_kType;
   sym_kUses; sym_kVar]].

(** State 2524. *)
Definition ts_parse_table_2524 : parse_row :=
  [ACTIONS 10594 [anon_sym_LBRACK; aux_sym_ppUsesBlock_token1]; ACTIONS 3 [sym__space];
   ACTIONS 5 [sym_ppDirective]; ACTIONS 3 [sym_comment]; ACTIONS 10594 [sym_kDefault;
   sym_kNodefault; sym_kDispId; sym_kGeneric; sym_kOperator; sym_kPublic; sym_kStatic;
   sym_kVirtual; sym_kAbstract; sym_kDynamic; sym_kOverride; sym_kOverload; sym_kReintroduce;
   sym_kStdcall; sym_kCdecl; sym_kCppdecl; sym_kPascal; sym_kRegister; sym_kMwpascal;
   sym_kMessage; sym_kDeprecated; sym_kExperimental; sym_kPlatform; sym_kUnimplemented;
   sym_kCvar; sym_kExport; sym_kFar; sym_kNear; sym_kSafecall; sym_kAssembler; sym_kNostackframe;
   sym_kInterrupt; sym_kNoreturn; sym_kIocheck; sym_kLocal; sym_kHardfloat; sym_kSoftfloat;
   sym_kMs_abi_default; sym_kMs_abi_cdecl; sym_kSaveregisters; sym_kSysv_abi_default;
   sym_kSysv_abi_cdecl; sym_kVectorcall; sym_kVarargs; sym_kWinapi; sym_kAlias; sym_kClass;
   sym_kConst; sym_kConstructor; sym_kDestructor; sym_kEnd; sym_kExports; sym_kFinalization;
   sym_kFunction; sym_kImplementation; sym_kInitialization; sym_kInline; sym_kInterface;
   sym_kLabel; sym_kProcedure; sym_kProperty; sym_kResourcestring; sym_kThreadvar; sym_kType;
   sym_kUses; sym_kVar]].

(** State 2525. *)
Definition ts_parse_table_2525 : parse_row :=
  [ACTIONS 9834 [anon_sym_LBRACK; aux_sym_ppUsesBlock_token1]; ACTIONS 3 [sym__space];
   ACTIONS 5 [sym_ppDirective]; ACTIONS 3 [sym_comment]; ACTIONS 9834 [sym_kDefault;
   sym_kNodefault; sym_kDispId; sym_kGeneric; sym_kOperator; sym_kPublished; sym_kPublic;
   sym_kProtected; sym_kPrivate; sym_kStrict; sym_kRequired; sym_kOptional; sym_kStatic;
   sym_kVirtual; sym_kAbstract; sym_kDynamic; sym_kOverride; sym_kOverload; sym_kReintroduce;
   sym_kStdcall; sym_kCdecl; sym_kCppdecl; sym_kPascal; sym_kRegister; sym_kMwpascal;
   sym_kMessage; sym_kDeprecated; sym_kExperimental; sym_kPlatform; sym_kUnimplemented;
   sym_kCvar; sym_kExport; sym_kFar; sym_kNear; sym_kSafecall; sym_kAssembler; sym_kNostackframe;
   sym_kInterrupt; sym_kNoreturn; sym_kIocheck; sym_kLocal; sym_kHardfloat; sym_kSoftfloat;
   sym_kMs_abi_default; sym_kMs_abi_cdecl; sym_kSaveregisters; sym_kSysv_abi_default;
   sym_kSysv_abi_cdecl; sym_kVectorcall; sym_kVarargs; sym_kWinapi; sym_kAlias; sym_kCase;
   sym_kClass; sym_kConst; sym_kConstructor; sym_kDestructor; sym_kEnd; sym_kFunction;
   sym_kInline; sym_kProcedure; sym_kProperty; sym_kResourcestring; sym_kThreadvar; sym_kType;
   sym_kVar]].

(** State 2526. *)
Definition ts_parse_table_2526 : parse_row :=
  [ACTIONS 9838 [anon_sym_LBRACK; aux_sym_ppUsesBlock_token1]; ACTIONS 3 [sym__space];
   ACTIONS 5 [sym_ppDirective]; ACTIONS 3 [sym_comment]; ACTIONS 9838 [sym_kDefault;
   sym_kNodefault; sym_kDispId; sym_kGeneric; sym_kOperator; sym_kPublished; sym_kPublic;
   sym_kProtected; sym_kPrivate; sym_kStrict; sym_kRequired; sym_kOptional; sym_kStatic;
   sym_kVirtual; sym_kAbstract; sym_kDynamic; sym_kOverride; sym_kOverload; sym_kReintroduce;
   sym_kStdcall; sym_kCdecl; sym_kCppdecl; sym_kPascal; sym_kRegister; sym_kMwpascal;
   sym_kMessage; sym_kDeprecated; sym_kExperimental; sym_kPlatform; sym_kUnimplemented;
   sym_kCvar; sym_kExport; sym_kFar; sym_kNear; sym_kSafecall; sym_kAssembler; sym_kNostackframe;
   sym_kInterrupt; sym_kNoreturn; sym_kIocheck; sym_kLocal; sym_kHardfloat; sym_kSoftfloat;
   sym_kMs_abi_default; sym_kMs_abi_cdecl; sym_kSaveregisters; sym_kSysv_abi_default;
   sym_kSysv_abi_cdecl; sym_kVectorcall; sym_kVarargs; sym_kWinapi; sym_kAlias; sym_kCase;
   sym_kClass; sym_kConst; sym_kConstructor; sym_kDestructor; sym_kEnd; sym_kFunction;
   sym_kInline; sym_kProcedure; sym_kProperty; sym_kResourcestring; sym_kThreadvar; sym_kType;
   sym_kVar]].

(** State 2527. *)
Definition ts_parse_table_2527 : parse_row :=
  [STATE 2661 [sym__procAttribute]; STATE 15438 [sym_procAttribute];
   STATE 2534 [aux_sym_declProcFwd_repeat1]; ACTIONS 14639 [anon_sym_LBRACK];
   ACTIONS 9336 [aux_sym_ppUsesBlock_token1]; ACTIONS 3 [sym__space];
   ACTIONS 5 [sym_ppDirective]; ACTIONS 3 [sym_comment]; ACTIONS 9336 [sym_identifier];
   ACTIONS 1016 [sym_kDefault; sym_kNodefault]; ACTIONS 11641 [sym_kDispId];
   ACTIONS 9336 [sym_kGeneric; sym_kOperator]; ACTIONS 11643 [sym_kPublic];
   ACTIONS 1016 [sym_kStatic; sym_kVirtual; sym_kAbstract; sym_kDynamic; sym_kOverride;
   sym_kOverload; sym_kReintroduce; sym_kStdcall; sym_kCdecl; sym_kCppdecl; sym_kPascal;
   sym_kRegister; sym_kMwpascal]; ACTIONS 11645 [sym_kMessage]; ACTIONS 11647 [sym_kDeprecated];
   ACTIONS 1016 [sym_kExperimental; sym_kPlatform; sym_kUnimplemented; sym_kCvar];
   ACTIONS 11649 [sym_kExport]; ACTIONS 1016 [sym_kFar; sym_kNear; sym_kSafecall; sym_kAssembler;
   sym_kNostackframe; sym_kInterrupt; sym_kNoreturn; sym_kIocheck; sym_kLocal; sym_kHardfloat;
   sym_kSoftfloat; sym_kMs_abi_default; sym_kMs_abi_cdecl; sym_kSaveregisters;
   sym_kSysv_abi_default; sym_kSysv_abi_cdecl; sym_kVectorcall; sym_kVarargs; sym_kWinapi];
   ACTIONS 11651 [sym_kAlias]; ACTIONS 9336 [sym_kBegin; sym_kClass; sym_kConst;
   sym_kConstructor; sym_kDestructor; sym_kEnd; sym_kExports; sym_kFunction];
   ACTIONS 1016 [sym_kInline]; ACTIONS 9336 [sym_kLabel; sym_kProcedure; sym_kResourcestring;
   sym_kThreadvar; sym_kType; sym_kUses; sym_kVar]].

(** State 2528. *)
Definition ts_parse_table_2528 : parse_row :=
  [STATE 2661 [sym__procAttribute]; STATE 15438 [sym_procAttribute];
   STATE 2512 [aux_sym_declProcFwd_repeat1]; ACTIONS 14642 [anon_sym_LBRACK];
   ACTIONS 9408 [aux_sym_ppUsesBlock_token1]; ACTIONS 3 [sym__space];
   ACTIONS 5 [sym_ppDirective]; ACTIONS 3 [sym_comment]; ACTIONS 9408 [sym_identifier];
   ACTIONS 1016 [sym_kDefault; sym_kNodefault]; ACTIONS 11641 [sym_kDispId];
   ACTIONS 9408 [sym_kGeneric; sym_kOperator]; ACTIONS 11643 [sym_kPublic];
   ACTIONS 1016 [sym_kStatic; sym_kVirtual; sym_kAbstract; sym_kDynamic; sym_kOverride;
   sym_kOverload; sym_kReintroduce; sym_kStdcall; sym_kCdecl; sym_kCppdecl; sym_kPascal;
   sym_kRegister; sym_kMwpascal]; ACTIONS 11645 [sym_kMessage]; ACTIONS 11647 [sym_kDeprecated];
   ACTIONS 1016 [sym_kExperimental; sym_kPlatform; sym_kUnimplemented; sym_kCvar];
   ACTIONS 11649 [sym_kExport]; ACTIONS 1016 [sym_kFar; sym_kNear; sym_kSafecall; sym_kAssembler;
   sym_kNostackframe; sym_kInterrupt; sym_kNoreturn; sym_kIocheck; sym_kLocal; sym_kHardfloat;
   sym_kSoftfloat; sym_kMs_abi_default; sym_kMs_abi_cdecl; sym_kSaveregisters;
   sym_kSysv_abi_default; sym_kSysv_abi_cdecl; sym_kVectorcall; sym_kVarargs; sym_kWinapi];
   ACTIONS 11651 [sym_kAlias]; ACTIONS 9408 [sym_kBegin; sym_kClass; sym_kConst;
   sym_kConstructor; sym_kDestructor; sym_kEnd; sym_kExports; sym_kFunction];
   ACTIONS 1016 [sym_kInline]; ACTIONS 9408 [sym_kLabel; sym_kProcedure; sym_kResourcestring;
   sym_kThreadvar; sym_kType; sym_kUses; sym_kVar]].

(** State 2529. *)
Definition ts_parse_table_2529 : parse_row :=
  [STATE 2661 [sym__procAttribute]; STATE 15438 [sym_procAttribute];
   STATE 2543 [aux_sym_declProcFwd_repeat1]; ACTIONS 14645 [anon_sym_LBRACK];
   ACTIONS 7546 [aux_sym_ppUsesBlock_token1]; ACTIONS 3 [sym__space];
   ACTIONS 5 [sym_ppDirective]; ACTIONS 3 [sym_comment]; ACTIONS 7546 [sym_identifier];
   ACTIONS 1016 [sym_kDefault; sym_kNodefault]; ACTIONS 11641 [sym_kDispId];
   ACTIONS 7546 [sym_kGeneric; sym_kOperator]; ACTIONS 11643 [sym_kPublic];
   ACTIONS 1016 [sym_kStatic; sym_kVirtual; sym_kAbstract; sym_kDynamic; sym_kOverride;
   sym_kOverload; sym_kReintroduce; sym_kStdcall; sym_kCdecl; sym_kCppdecl; sym_kPascal;
   sym_kRegister; sym_kMwpascal]; ACTIONS 11645 [sym_kMessage]; ACTIONS 11647 [sym_kDeprecated];
   ACTIONS 1016 [sym_kExperimental; sym_kPlatform; sym_kUnimplemented; sym_kCvar];
   ACTIONS 11649 [sym_kExport]; ACTIONS 1016 [sym_kFar; sym_kNear; sym_kSafecall; sym_kAssembler;
   sym_kNostackframe; sym_kInterrupt; sym_kNoreturn; sym_kIocheck; sym_kLocal; sym_kHardfloat;
   sym_kSoftfloat; sym_kMs_abi_default; sym_kMs_abi_cdecl; sym_kSaveregisters;
   sym_kSysv_abi_default; sym_kSysv_abi_cdecl; sym_kVectorcall; sym_kVarargs; sym_kWinapi];
   ACTIONS 11651 [sym_kAlias]; ACTIONS 7546 [sym_kBegin; sym_kClass; sym_kConst;
   sym_kConstructor; sym_kDestructor; sym_kEnd; sym_kExports; sym_kFunction];
   ACTIONS 1016 [sym_kInline]; ACTIONS 7546 [sym_kLabel; sym_kProcedure; sym_kResourcestring;
   sym_kThreadvar; sym_kType; sym_kUses; sym_kVar]].

(** State 2530. *)
Definition ts_parse_table_2530 : parse_row :=
  [STATE 2661 [sym__procAttribute]; STATE 15438 [sym_procAttribute];
   STATE 2544 [aux_sym_declProcFwd_repeat1]; ACTIONS 14648 [anon_sym_LBRACK];
   ACTIONS 7574 [aux_sym_ppUsesBlock_token1]; ACTIONS 3 [sym__space];
   ACTIONS 5 [sym_ppDirective]; ACTIONS 3 [sym_comment]; ACTIONS 7574 [sym_identifier];
   ACTIONS 1016 [sym_kDefault; sym_kNodefault]; ACTIONS 11641 [sym_kDispId];
   ACTIONS 7574 [sym_kGeneric; sym_kOperator]; ACTIONS 11643 [sym_kPublic];
   ACTIONS 1016 [sym_kStatic; sym_kVirtual; sym_kAbstract; sym_kDynamic; sym_kOverride;
   sym_kOverload; sym_kReintroduce; sym_kStdcall; sym_kCdecl; sym_kCppdecl; sym_kPascal;
   sym_kRegister; sym_kMwpascal]; ACTIONS 11645 [sym_kMessage]; ACTIONS 11647 [sym_kDeprecated];
   ACTIONS 1016 [sym_kExperimental; sym_kPlatform; sym_kUnimplemented; sym_kCvar];
   ACTIONS 11649 [sym_kExport]; ACTIONS 1016 [sym_kFar; sym_kNear; sym_kSafecall; sym_kAssembler;
   sym_kNostackframe; sym_kInterrupt; sym_kNoreturn; sym_kIocheck; sym_kLocal; sym_kHardfloat;
   sym_kSoftfloat; sym_kMs_abi_default; sym_kMs_abi_cdecl; sym_kSaveregisters;
   sym_kSysv_abi_default; sym_kSysv_abi_cdecl; sym_kVectorcall; sym_kVarargs; sym_kWinapi];
   ACTIONS 11651 [sym_kAlias]; ACTIONS 7574 [sym_kBegin; sym_kClass; sym_kConst;
   sym_kConstructor; sym_kDestructor; sym_kEnd; sym_kExports; sym_kFunction];
   ACTIONS 1016 [sym_kInline]; ACTIONS 7574 [sym_kLabel; sym_kProcedure; sym_kResourcestring;
   sym_kThreadvar; sym_kType; sym_kUses; sym_kVar]].

(** State 2531. *)
Definition ts_parse_table_2531 : parse_row :=
  [STATE 2661 [sym__procAttribute]; STATE 15438 [sym_procAttribute];
   STATE 2512 [aux_sym_declProcFwd_repeat1]; ACTIONS 14651 [anon_sym_LBRACK];
   ACTIONS 7602 [aux_sym_ppUsesBlock_token1]; ACTIONS 3 [sym__space];
   ACTIONS 5 [sym_ppDirective]; ACTIONS 3 [sym_comment]; ACTIONS 7602 [sym_identifier];
   ACTIONS 1016 [sym_kDefault; sym_kNodefault]; ACTIONS 11641 [sym_kDispId];
   ACTIONS 7602 [sym_kGeneric; sym_kOperator]; ACTIONS 11643 [sym_kPublic];
   ACTIONS 1016 [sym_kStatic; sym_kVirtual; sym_kAbstract; sym_kDynamic; sym_kOverride;
   sym_kOverload; sym_kReintroduce; sym_kStdcall; sym_kCdecl; sym_kCppdecl; sym_kPascal;
   sym_kRegister; sym_kMwpascal]; ACTIONS 11645 [sym_kMessage]; ACTIONS 11647 [sym_kDeprecated];
   ACTIONS 1016 [sym_kExperimental; sym_kPlatform; sym_kUnimplemented; sym_kCvar];
   ACTIONS 11649 [sym_kExport]; ACTIONS 1016 [sym_kFar; sym_kNear; sym_kSafecall; sym_kAssembler;
   sym_kNostackframe; sym_kInterrupt; sym_kNoreturn; sym_kIocheck; sym_kLocal; sym_kHardfloat;
   sym_kSoftfloat; sym_kMs_abi_default; sym_kMs_abi_cdecl; sym_kSaveregisters;
   sym_kSysv_abi_default; sym_kSysv_abi_cdecl; sym_kVectorcall; sym_kVarargs; sym_kWinapi];
   ACTIONS 11651 [sym_kAlias]; ACTIONS 7602 [sym_kBegin; sym_kClass; sym_kConst;
   sym_kConstructor; sym_kDestructor; sym_kEnd; sym_kExports; sym_kFunction];
   ACTIONS 1016 [sym_kInline]; ACTIONS 7602 [sym_kLabel; sym_kProcedure; sym_kResourcestring;
   sym_kThreadvar; sym_kType; sym_kUses; sym_kVar]].

(** State 2532. *)
Definition ts_parse_table_2532 : parse_row :=
  [STATE 2663 [sym__procAttribute]; STATE 15213 [sym_procAttribute];
   STATE 2507 [aux_sym_declProcFwd_repeat1]; ACTIONS 8420 [ts_builtin_sym_end];
   ACTIONS 14654 [anon_sym_LBRACK]; ACTIONS 8420 [aux_sym_ppUsesBlock_token1];
   ACTIONS 3 [sym__space]; ACTIONS 5 [sym_ppDirective]; ACTIONS 3 [sym_comment];
   ACTIONS 8420 [sym_identifier]; ACTIONS 1016 [sym_kDefault; sym_kNodefault];
   ACTIONS 11641 [sym_kDispId]; ACTIONS 8420 [sym_kGeneric; sym_kOperator];
   ACTIONS 11643 [sym_kPublic]; ACTIONS 1016 [sym_kStatic; sym_kVirtual; sym_kAbstract;
   sym_kDynamic; sym_kOverride; sym_kOverload; sym_kReintroduce; sym_kStdcall; sym_kCdecl;
   sym_kCppdecl; sym_kPascal; sym_kRegister; sym_kMwpascal]; ACTIONS 11645 [sym_kMessage];
   ACTIONS 11647 [sym_kDeprecated]; ACTIONS 1016 [sym_kExperimental; sym_kPlatform;
   sym_kUnimplemented; sym_kCvar]; ACTIONS 11649 [sym_kExport]; ACTIONS 1016 [sym_kFar;
   sym_kNear; sym_kSafecall; sym_kAssembler; sym_kNostackframe; sym_kInterrupt; sym_kNoreturn;
   sym_kIocheck; sym_kLocal; sym_kHardfloat; sym_kSoftfloat; sym_kMs_abi_default;
   sym_kMs_abi_cdecl; sym_kSaveregisters; sym_kSysv_abi_default; sym_kSysv_abi_cdecl;
   sym_kVectorcall; sym_kVarargs; sym_kWinapi]; ACTIONS 11651 [sym_kAlias];
   ACTIONS 8420 [sym_kBegin; sym_kClass; sym_kConst; sym_kConstructor; sym_kDestructor;
   sym_kExports; sym_kFunction]; ACTIONS 1016 [sym_kInline]; ACTIONS 8420 [sym_kLabel;
   sym_kProcedure; sym_kResourcestring; sym_kThreadvar; sym_kType; sym_kUses; sym_kVar]].

(** State 2533. *)
Definition ts_parse_table_2533 : parse_row :=
  [STATE 2663 [sym__procAttribute]; STATE 15213 [sym_procAttribute];
   STATE 2570 [aux_sym_declProcFwd_repeat1]; ACTIONS 7574 [ts_builtin_sym_end];
   ACTIONS 14657 [anon_sym_LBRACK]; ACTIONS 7574 [aux_sym_ppUsesBlock_token1];
   ACTIONS 3 [sym__space]; ACTIONS 5 [sym_ppDirective]; ACTIONS 3 [sym_comment];
   ACTIONS 7574 [sym_identifier]; ACTIONS 1016 [sym_kDefault; sym_kNodefault];
   ACTIONS 11641 [sym_kDispId]; ACTIONS 7574 [sym_kGeneric; sym_kOperator];
   ACTIONS 11643 [sym_kPublic]; ACTIONS 1016 [sym_kStatic; sym_kVirtual; sym_kAbstract;
   sym_kDynamic; sym_kOverride; sym_kOverload; sym_kReintroduce; sym_kStdcall; sym_kCdecl;
   sym_kCppdecl; sym_kPascal; sym_kRegister; sym_kMwpascal]; ACTIONS 11645 [sym_kMessage];
   ACTIONS 11647 [sym_kDeprecated]; ACTIONS 1016 [sym_kExperimental; sym_kPlatform;
   sym_kUnimplemented; sym_kCvar]; ACTIONS 11649 [sym_kExport]; ACTIONS 1016 [sym_kFar;
   sym_kNear; sym_kSafecall; sym_kAssembler; sym_kNostackframe; sym_kInterrupt; sym_kNoreturn;
   sym_kIocheck; sym_kLocal; sym_kHardfloat; sym_kSoftfloat; sym_kMs_abi_default;
   sym_kMs_abi_cdecl; sym_kSaveregisters; sym_kSysv_abi_default; sym_kSysv_abi_cdecl;
   sym_kVectorcall; sym_kVarargs; sym_kWinapi]; ACTIONS 11651 [sym_kAlias];
   ACTIONS 7574 [sym_kBegin; sym_kClass; sym_kConst; sym_kConstructor; sym_kDestructor;
   sym_kExports; sym_kFunction]; ACTIONS 1016 [sym_kInline]; ACTIONS 7574 [sym_kLabel;
   sym_kProcedure; sym_kResourcestring; sym_kThreadvar; sym_kType; sym_kUses; sym_kVar]].

(** State 2534. *)
Definition ts_parse_table_2534 : parse_row :=
  [STATE 2661 [sym__procAttribute]; STATE 15438 [sym_procAttribute];
   STATE 2512 [aux_sym_declProcFwd_repeat1]; ACTIONS 14660 [anon_sym_LBRACK];
   ACTIONS 8030 [aux_sym_ppUsesBlock_token1]; ACTIONS 3 [sym__space];
   ACTIONS 5 [sym_ppDirective]; ACTIONS 3 [sym_comment]; ACTIONS 8030 [sym_identifier];
   ACTIONS 1016 [sym_kDefault; sym_kNodefault]; ACTIONS 11641 [sym_kDispId];
   ACTIONS 8030 [sym_kGeneric; sym_kOperator]; ACTIONS 11643 [sym_kPublic];
   ACTIONS 1016 [sym_kStatic; sym_kVirtual; sym_kAbstract; sym_kDynamic; sym_kOverride;
   sym_kOverload; sym_kReintroduce; sym_kStdcall; sym_kCdecl; sym_kCppdecl; sym_kPascal;
   sym_kRegister; sym_kMwpascal]; ACTIONS 11645 [sym_kMessage]; ACTIONS 11647 [sym_kDeprecated];
   ACTIONS 1016 [sym_kExperimental; sym_kPlatform; sym_kUnimplemented; sym_kCvar];
   ACTIONS 11649 [sym_kExport]; ACTIONS 1016 [sym_kFar; sym_kNear; sym_kSafecall; sym_kAssembler;
   sym_kNostackframe; sym_kInterrupt; sym_kNoreturn; sym_kIocheck; sym_kLocal; sym_kHardfloat;
   sym_kSoftfloat; sym_kMs_abi_default; sym_kMs_abi_cdecl; sym_kSaveregisters;
   sym_kSysv_abi_default; sym_kSysv_abi_cdecl; sym_kVectorcall; sym_kVarargs; sym_kWinapi];
   ACTIONS 11651 [sym_kAlias]; ACTIONS 8030 [sym_kBegin; sym_kClass; sym_kConst;
   sym_kConstructor; sym_kDestructor; sym_kEnd; sym_kExports; sym_kFunction];
   ACTIONS 1016 [sym_kInline]; ACTIONS 8030 [sym_kLabel; sym_kProcedure; sym_kResourcestring;
   sym_kThreadvar; sym_kType; sym_kUses; sym_kVar]].

(** State 2535. *)
Definition ts_parse_table_2535 : parse_row :=
  [STATE 2661 [sym__procAttribute]; STATE 15438 [sym_procAttribute];
   STATE 2550 [aux_sym_declProcFwd_repeat1]; ACTIONS 14663 [anon_sym_LBRACK];
   ACTIONS 8058 [aux_sym_ppUsesBlock_token1]; ACTIONS 3 [sym__space];
   ACTIONS 5 [sym_ppDirective]; ACTIONS 3 [sym_comment]; ACTIONS 8058 [sym_identifier];
   ACTIONS 1016 [sym_kDefault; sym_kNodefault]; ACTIONS 11641 [sym_kDispId];
   ACTIONS 8058 [sym_kGeneric; sym_kOperator]; ACTIONS 11643 [sym_kPublic];
   ACTIONS 1016 [sym_kStatic; sym_kVirtual; sym_kAbstract; sym_kDynamic; sym_kOverride;
   sym_kOverload; sym_kReintroduce; sym_kStdcall; sym_kCdecl; sym_kCppdecl; sym_kPascal;
   sym_kRegister; sym_kMwpascal]; ACTIONS 11645 [sym_kMessage]; ACTIONS 11647 [sym_kDeprecated];
   ACTIONS 1016 [sym_kExperimental; sym_kPlatform; sym_kUnimplemented; sym_kCvar];
   ACTIONS 11649 [sym_kExport]; ACTIONS 1016 [sym_kFar; sym_kNear; sym_kSafecall; sym_kAssembler;
   sym_kNostackframe; sym_kInterrupt; sym_kNoreturn; sym_kIocheck; sym_kLocal; sym_kHardfloat;
   sym_kSoftfloat; sym_kMs_abi_default; sym_kMs_abi_cdecl; sym_kSaveregisters;
   sym_kSysv_abi_default; sym_kSysv_abi_cdecl; sym_kVectorcall; sym_kVarargs; sym_kWinapi];
   ACTIONS 11651 [sym_kAlias]; ACTIONS 8058 [sym_kBegin; sym_kClass; sym_kConst;
   sym_kConstructor; sym_kDestructor; sym_kEnd; sym_kExports; sym_kFunction];
   ACTIONS 1016 [sym_kInline]; ACTIONS 8058 [sym_kLabel; sym_kProcedure; sym_kResourcestring;
   sym_kThreadvar; sym_kType; sym_kUses; sym_kVar]].

(** State 2536. *)
Definition ts_parse_table_2536 : parse_row :=
  [STATE 2670 [sym__procAttribute]; STATE 15598 [sym_procAttribute];
   STATE 2472 [aux_sym_declProcFwd_repeat1]; ACTIONS 14666 [anon_sym_LBRACK];
   ACTIONS 8926 [aux_sym_ppUsesBlock_token1]; ACTIONS 3 [sym__space];
   ACTIONS 5 [sym_ppDirective]; ACTIONS 3 [sym_comment]; ACTIONS 8926 [sym_identifier];
   ACTIONS 1016 [sym_kDefault; sym_kNodefault]; ACTIONS 11641 [sym_kDispId];
   ACTIONS 8926 [sym_kGeneric; sym_kOperator]; ACTIONS 11643 [sym_kPublic];
   ACTIONS 1016 [sym_kStatic; sym_kVirtual; sym_kAbstract; sym_kDynamic; sym_kOverride;
   sym_kOverload; sym_kReintroduce; sym_kStdcall; sym_kCdecl; sym_kCppdecl; sym_kPascal;
   sym_kRegister; sym_kMwpascal]; ACTIONS 11645 [sym_kMessage]; ACTIONS 11647 [sym_kDeprecated];
   ACTIONS 1016 [sym_kExperimental; sym_kPlatform; sym_kUnimplemented; sym_kCvar];
   ACTIONS 11649 [sym_kExport]; ACTIONS 1016 [sym_kFar; sym_kNear; sym_kSafecall; sym_kAssembler;
   sym_kNostackframe; sym_kInterrupt; sym_kNoreturn; sym_kIocheck; sym_kLocal; sym_kHardfloat;
   sym_kSoftfloat; sym_kMs_abi_default; sym_kMs_abi_cdecl; sym_kSaveregisters;
   sym_kSysv_abi_default; sym_kSysv_abi_cdecl; sym_kVectorcall; sym_kVarargs; sym_kWinapi];
   ACTIONS 11651 [sym_kAlias]; ACTIONS 8926 [sym_kAsm; sym_kBegin; sym_kClass; sym_kConst;
   sym_kConstructor; sym_kDestructor; sym_kExports; sym_kFunction]; ACTIONS 1016 [sym_kInline];
   ACTIONS 8926 [sym_kLabel; sym_kProcedure; sym_kResourcestring; sym_kThreadvar; sym_kType;
   sym_kUses; sym_kVar]].

(** State 2537. *)
Definition ts_parse_table_2537 : parse_row :=
  [ACTIONS 9842 [anon_sym_LBRACK; aux_sym_ppUsesBlock_token1]; ACTIONS 3 [sym__space];
   ACTIONS 5 [sym_ppDirective]; ACTIONS 3 [sym_comment]; ACTIONS 9842 [sym_kDefault;
   sym_kNodefault; sym_kDispId; sym_kGeneric; sym_kOperator; sym_kPublic; sym_kStatic;
   sym_kVirtual; sym_kAbstract; sym_kDynamic; sym_kOverride; sym_kOverload; sym_kReintroduce;
   sym_kStdcall; sym_kCdecl; sym_kCppdecl; sym_kPascal; sym_kRegister; sym_kMwpascal;
   sym_kMessage; sym_kDeprecated; sym_kExperimental; sym_kPlatform; sym_kUnimplemented;
   sym_kCvar; sym_kExport; sym_kFar; sym_kNear; sym_kSafecall; sym_kAssembler; sym_kNostackframe;
   sym_kInterrupt; sym_kNoreturn; sym_kIocheck; sym_kLocal; sym_kHardfloat; sym_kSoftfloat;
   sym_kMs_abi_default; sym_kMs_abi_cdecl; sym_kSaveregisters; sym_kSysv_abi_default;
   sym_kSysv_abi_cdecl; sym_kVectorcall; sym_kVarargs; sym_kWinapi; sym_kAlias; sym_kClass;
   sym_kConst; sym_kConstructor; sym_kDestructor; sym_kEnd; sym_kExports; sym_kFinalization;
   sym_kFunction; sym_kImplementation; sym_kInitialization; sym_kInline; sym_kInterface;
   sym_kLabel; sym_kProcedure; sym_kProperty; sym_kResourcestring; sym_kThreadvar; sym_kType;
   sym_kUses; sym_kVar]].

(** State 2538. *)
Definition ts_parse_table_2538 : parse_row :=
  [STATE 2663 [sym__procAttribute]; STATE 15213 [sym_procAttribute];
   STATE 2507 [aux_sym_declProcFwd_repeat1]; ACTIONS 7602 [ts_builtin_sym_end];
   ACTIONS 14669 [anon_sym_LBRACK]; ACTIONS 7602 [aux_sym_ppUsesBlock_token1];
   ACTIONS 3 [sym__space]; ACTIONS 5 [sym_ppDirective]; ACTIONS 3 [sym_comment];
   ACTIONS 7602 [sym_identifier]; ACTIONS 1016 [sym_kDefault; sym_kNodefault];
   ACTIONS 11641 [sym_kDispId]; ACTIONS 7602 [sym_kGeneric; sym_kOperator];
   ACTIONS 11643 [sym_kPublic]; ACTIONS 1016 [sym_kStatic; sym_kVirtual; sym_kAbstract;
   sym_kDynamic; sym_kOverride; sym_kOverload; sym_kReintroduce; sym_kStdcall; sym_kCdecl;
   sym_kCppdecl; sym_kPascal; sym_kRegister; sym_kMwpascal]; ACTIONS 11645 [sym_kMessage];
   ACTIONS 11647 [sym_kDeprecated]; ACTIONS 1016 [sym_kExperimental; sym_kPlatform;
   sym_kUnimplemented; sym_kCvar]; ACTIONS 11649 [sym_kExport]; ACTIONS 1016 [sym_kFar;
   sym_kNear; sym_kSafecall; sym_kAssembler; sym_kNostackframe; sym_kInterrupt; sym_kNoreturn;
   sym_kIocheck; sym_kLocal; sym_kHardfloat; sym_kSoftfloat; sym_kMs_abi_default;
   sym_kMs_abi_cdecl; sym_kSaveregisters; sym_kSysv_abi_default; sym_kSysv_abi_cdecl;
   sym_kVectorcall; sym_kVarargs; sym_kWinapi]; ACTIONS 11651 [sym_kAlias];
   ACTIONS 7602 [sym_kBegin; sym_kClass; sym_kConst; sym_kConstructor; sym_kDestructor;
   sym_kExports; sym_kFunction]; ACTIONS 1016 [sym_kInline]; ACTIONS 7602 [sym_kLabel;
   sym_kProcedure; sym_kResourcestring; sym_kThreadvar; sym_kType; sym_kUses; sym_kVar]].

(** State 2539. *)
Definition ts_parse_table_2539 : parse_row :=
  [ACTIONS 10566 [anon_sym_LBRACK; aux_sym_ppUsesBlock_token1]; ACTIONS 3 [sym__space];
   ACTIONS 5 [sym_ppDirective]; ACTIONS 3 [sym_comment]; ACTIONS 10566 [sym_kDefault;
   sym_kNodefault; sym_kDispId; sym_kGeneric; sym_kOperator; sym_kPublished; sym_kPublic;
   sym_kProtected; sym_kPrivate; sym_kStrict; sym_kRequired; sym_kOptional; sym_kStatic;
   sym_kVirtual; sym_kAbstract; sym_kDynamic; sym_kOverride; sym_kOverload; sym_kReintroduce;
   sym_kStdcall; sym_kCdecl; sym_kCppdecl; sym_kPascal; sym_kRegister; sym_kMwpascal;
   sym_kMessage; sym_kDeprecated; sym_kExperimental; sym_kPlatform; sym_kUnimplemented;
   sym_kCvar; sym_kExport; sym_kFar; sym_kNear; sym_kSafecall; sym_kAssembler; sym_kNostackframe;
   sym_kInterrupt; sym_kNoreturn; sym_kIocheck; sym_kLocal; sym_kHardfloat; sym_kSoftfloat;
   sym_kMs_abi_default; sym_kMs_abi_cdecl; sym_kSaveregisters; sym_kSysv_abi_default;
   sym_kSysv_abi_cdecl; sym_kVectorcall; sym_kVarargs; sym_kWinapi; sym_kAlias; sym_kCase;
   sym_kClass; sym_kConst; sym_kConstructor; sym_kDestructor; sym_kEnd; sym_kFunction;
   sym_kInline; sym_kProcedure; sym_kProperty; sym_kResourcestring; sym_kThreadvar; sym_kType;
   sym_kVar]].

(** State 2540. *)
Definition ts_parse_table_2540 : parse_row :=
  [STATE 2670 [sym__procAttribute]; STATE 15598 [sym_procAttribute];
   STATE 2499 [aux_sym_declProcFwd_repeat1]; ACTIONS 14672 [anon_sym_LBRACK];
   ACTIONS 8870 [aux_sym_ppUsesBlock_token1]; ACTIONS 3 [sym__space];
   ACTIONS 5 [sym_ppDirective]; ACTIONS 3 [sym_comment]; ACTIONS 8870 [sym_identifier];
   ACTIONS 1016 [sym_kDefault; sym_kNodefault]; ACTIONS 11641 [sym_kDispId];
   ACTIONS 8870 [sym_kGeneric; sym_kOperator]; ACTIONS 11643 [sym_kPublic];
   ACTIONS 1016 [sym_kStatic; sym_kVirtual; sym_kAbstract; sym_kDynamic; sym_kOverride;
   sym_kOverload; sym_kReintroduce; sym_kStdcall; sym_kCdecl; sym_kCppdecl; sym_kPascal;
   sym_kRegister; sym_kMwpascal]; ACTIONS 11645 [sym_kMessage]; ACTIONS 11647 [sym_kDeprecated];
   ACTIONS 1016 [sym_kExperimental; sym_kPlatform; sym_kUnimplemented; sym_kCvar];
   ACTIONS 11649 [sym_kExport]; ACTIONS 1016 [sym_kFar; sym_kNear; sym_kSafecall; sym_kAssembler;
   sym_kNostackframe; sym_kInterrupt; sym_kNoreturn; sym_kIocheck; sym_kLocal; sym_kHardfloat;
   sym_kSoftfloat; sym_kMs_abi_default; sym_kMs_abi_cdecl; sym_kSaveregisters;
   sym_kSysv_abi_default; sym_kSysv_abi_cdecl; sym_kVectorcall; sym_kVarargs; sym_kWinapi];
   ACTIONS 11651 [sym_kAlias]; ACTIONS 8870 [sym_kAsm; sym_kBegin; sym_kClass; sym_kConst;
   sym_kConstructor; sym_kDestructor; sym_kExports; sym_kFunction]; ACTIONS 1016 [sym_kInline];
   ACTIONS 8870 [sym_kLabel; sym_kProcedure; sym_kResourcestring; sym_kThreadvar; sym_kType;
   sym_kUses; sym_kVar]].

(** State 2541. *)
Definition ts_parse_table_2541 : parse_row :=
  [ACTIONS 10576 [anon_sym_LBRACK; aux_sym_ppUsesBlock_token1]; ACTIONS 3 [sym__space];
   ACTIONS 5 [sym_ppDirective]; ACTIONS 3 [sym_comment]; ACTIONS 10576 [sym_kDefault;
   sym_kNodefault; sym_kDispId; sym_kGeneric; sym_kOperator; sym_kPublished; sym_kPublic;
   sym_kProtected; sym_kPrivate; sym_kStrict; sym_kRequired; sym_kOptional; sym_kStatic;
   sym_kVirtual; sym_kAbstract; sym_kDynamic; sym_kOverride; sym_kOverload; sym_kReintroduce;
   sym_kStdcall; sym_kCdecl; sym_kCppdecl; sym_kPascal; sym_kRegister; sym_kMwpascal;
   sym_kMessage; sym_kDeprecated; sym_kExperimental; sym_kPlatform; sym_kUnimplemented;
   sym_kCvar; sym_kExport; sym_kFar; sym_kNear; sym_kSafecall; sym_kAssembler; sym_kNostackframe;
   sym_kInterrupt; sym_kNoreturn; sym_kIocheck; sym_kLocal; sym_kHardfloat; sym_kSoftfloat;
   sym_kMs_abi_default; sym_kMs_abi_cdecl; sym_kSaveregisters; sym_kSysv_abi_default;
   sym_kSysv_abi_cdecl; sym_kVectorcall; sym_kVarargs; sym_kWinapi; sym_kAlias; sym_kCase;
   sym_kClass; sym_kConst; sym_kConstructor; sym_kDestructor; sym_kEnd; sym_kFunction;
   sym_kInline; sym_kProcedure; sym_kProperty; sym_kResourcestring; sym_kThreadvar; sym_kType;
   sym_kVar]].

(** State 2542. *)
Definition ts_parse_table_2542 : parse_row :=
  [STATE 2670 [sym__procAttribute]; STATE 15598 [sym_procAttribute];
   STATE 2592 [aux_sym_declProcFwd_repeat1]; ACTIONS 14675 [anon_sym_LBRACK];
   ACTIONS 8030 [aux_sym_ppUsesBlock_token1]; ACTIONS 3 [sym__space];
   ACTIONS 5 [sym_ppDirective]; ACTIONS 3 [sym_comment]; ACTIONS 8030 [sym_identifier];
   ACTIONS 1016 [sym_kDefault; sym_kNodefault]; ACTIONS 11641 [sym_kDispId];
   ACTIONS 8030 [sym_kGeneric; sym_kOperator]; ACTIONS 11643 [sym_kPublic];
   ACTIONS 1016 [sym_kStatic; sym_kVirtual; sym_kAbstract; sym_kDynamic; sym_kOverride;
   sym_kOverload; sym_kReintroduce; sym_kStdcall; sym_kCdecl; sym_kCppdecl; sym_kPascal;
   sym_kRegister; sym_kMwpascal]; ACTIONS 11645 [sym_kMessage]; ACTIONS 11647 [sym_kDeprecated];
   ACTIONS 1016 [sym_kExperimental; sym_kPlatform; sym_kUnimplemented; sym_kCvar];
   ACTIONS 11649 [sym_kExport]; ACTIONS 1016 [sym_kFar; sym_kNear; sym_kSafecall; sym_kAssembler;
   sym_kNostackframe; sym_kInterrupt; sym_kNoreturn; sym_kIocheck; sym_kLocal; sym_kHardfloat;
   sym_kSoftfloat; sym_kMs_abi_default; sym_kMs_abi_cdecl; sym_kSaveregisters;
   sym_kSysv_abi_default; sym_kSysv_abi_cdecl; sym_kVectorcall; sym_kVarargs; sym_kWinapi];
   ACTIONS 11651 [sym_kAlias]; ACTIONS 8030 [sym_kAsm; sym_kBegin; sym_kClass; sym_kConst;
   sym_kConstructor; sym_kDestructor; sym_kExports; sym_kFunction]; ACTIONS 1016 [sym_kInline];
   ACTIONS 8030 [sym_kLabel; sym_kProcedure; sym_kResourcestring; sym_kThreadvar; sym_kType;
   sym_kUses; sym_kVar]].

(** State 2543. *)
Definition ts_parse_table_2543 : parse_row :=
  [STATE 2661 [sym__procAttribute]; STATE 15438 [sym_procAttribute];
   STATE 2512 [aux_sym_declProcFwd_repeat1]; ACTIONS 14678 [anon_sym_LBRACK];
   ACTIONS 8278 [aux_sym_ppUsesBlock_token1]; ACTIONS 3 [sym__space];
   ACTIONS 5 [sym_ppDirective]; ACTIONS 3 [sym_comment]; ACTIONS 8278 [sym_identifier];
   ACTIONS 1016 [sym_kDefault; sym_kNodefault]; ACTIONS 11641 [sym_kDispId];
   ACTIONS 8278 [sym_kGeneric; sym_kOperator]; ACTIONS 11643 [sym_kPublic];
   ACTIONS 1016 [sym_kStatic; sym_kVirtual; sym_kAbstract; sym_kDynamic; sym_kOverride;
   sym_kOverload; sym_kReintroduce; sym_kStdcall; sym_kCdecl; sym_kCppdecl; sym_kPascal;
   sym_kRegister; sym_kMwpascal]; ACTIONS 11645 [sym_kMessage]; ACTIONS 11647 [sym_kDeprecated];
   ACTIONS 1016 [sym_kExperimental; sym_kPlatform; sym_kUnimplemented; sym_kCvar];
   ACTIONS 11649 [sym_kExport]; ACTIONS 1016 [sym_kFar; sym_kNear; sym_kSafecall; sym_kAssembler;
   sym_kNostackframe; sym_kInterrupt; sym_kNoreturn; sym_kIocheck; sym_kLocal; sym_kHardfloat;
   sym_kSoftfloat; sym_kMs_abi_default; sym_kMs_abi_cdecl; sym_kSaveregisters;
   sym_kSysv_abi_default; sym_kSysv_abi_cdecl; sym_kVectorcall; sym_kVarargs; sym_kWinapi];
   ACTIONS 11651 [sym_kAlias]; ACTIONS 8278 [sym_kBegin; sym_kClass; sym_kConst;
   sym_kConstructor; sym_kDestructor; sym_kEnd; sym_kExports; sym_kFunction];
   ACTIONS 1016 [sym_kInline]; ACTIONS 8278 [sym_kLabel; sym_kProcedure; sym_kResourcestring;
   sym_kThreadvar; sym_kType; sym_kUses; sym_kVar]].

(** State 2544. *)
Definition ts_parse_table_2544 : parse_row :=
  [STATE 2661 [sym__procAttribute]; STATE 15438 [sym_procAttribute];
   STATE 2512 [aux_sym_declProcFwd_repeat1]; ACTIONS 14681 [anon_sym_LBRACK];
   ACTIONS 8308 [aux_sym_ppUsesBlock_token1]; ACTIONS 3 [sym__space];
   ACTIONS 5 [sym_ppDirective]; ACTIONS 3 [sym_comment]; ACTIONS 8308 [sym_identifier];
   ACTIONS 1016 [sym_kDefault; sym_kNodefault]; ACTIONS 11641 [sym_kDispId];
   ACTIONS 8308 [sym_kGeneric; sym_kOperator]; ACTIONS 11643 [sym_kPublic];
   ACTIONS 1016 [sym_kStatic; sym_kVirtual; sym_kAbstract; sym_kDynamic; sym_kOverride;
   sym_kOverload; sym_kReintroduce; sym_kStdcall; sym_kCdecl; sym_kCppdecl; sym_kPascal;
   sym_kRegister; sym_kMwpascal]; ACTIONS 11645 [sym_kMessage]; ACTIONS 11647 [sym_kDeprecated];
   ACTIONS 1016 [sym_kExperimental; sym_kPlatform; sym_kUnimplemented; sym_kCvar];
   ACTIONS 11649 [sym_kExport]; ACTIONS 1016 [sym_kFar; sym_kNear; sym_kSafecall; sym_kAssembler;
   sym_kNostackframe; sym_kInterrupt; sym_kNoreturn; sym_kIocheck; sym_kLocal; sym_kHardfloat;
   sym_kSoftfloat; sym_kMs_abi_default; sym_kMs_abi_cdecl; sym_kSaveregisters;
   sym_kSysv_abi_default; sym_kSysv_abi_cdecl; sym_kVectorcall; sym_kVarargs; sym_kWinapi];
   ACTIONS 11651 [sym_kAlias]; ACTIONS 8308 [sym_kBegin; sym_kClass; sym_kConst;
   sym_kConstructor; sym_kDestructor; sym_kEnd; sym_kExports; sym_kFunction];
   ACTIONS 1016 [sym_kInline]; ACTIONS 8308 [sym_kLabel; sym_kProcedure; sym_kResourcestring;
   sym_kThreadvar; sym_kType; sym_kUses; sym_kVar]].

(** State 2545. *)
Definition ts_parse_table_2545 : parse_row :=
  [STATE 2661 [sym__procAttribute]; STATE 15438 [sym_procAttribute];
   STATE 2557 [aux_sym_declProcFwd_repeat1]; ACTIONS 14684 [anon_sym_LBRACK];
   ACTIONS 8336 [aux_sym_ppUsesBlock_token1]; ACTIONS 3 [sym__space];
   ACTIONS 5 [sym_ppDirective]; ACTIONS 3 [sym_comment]; ACTIONS 8336 [sym_identifier];
   ACTIONS 1016 [sym_kDefault; sym_kNodefault]; ACTIONS 11641 [sym_kDispId];
   ACTIONS 8336 [sym_kGeneric; sym_kOperator]; ACTIONS 11643 [sym_kPublic];
   ACTIONS 1016 [sym_kStatic; sym_kVirtual; sym_kAbstract; sym_kDynamic; sym_kOverride;
   sym_kOverload; sym_kReintroduce; sym_kStdcall; sym_kCdecl; sym_kCppdecl; sym_kPascal;
   sym_kRegister; sym_kMwpascal]; ACTIONS 11645 [sym_kMessage]; ACTIONS 11647 [sym_kDeprecated];
   ACTIONS 1016 [sym_kExperimental; sym_kPlatform; sym_kUnimplemented; sym_kCvar];
   ACTIONS 11649 [sym_kExport]; ACTIONS 1016 [sym_kFar; sym_kNear; sym_kSafecall; sym_kAssembler;
   sym_kNostackframe; sym_kInterrupt; sym_kNoreturn; sym_kIocheck; sym_kLocal; sym_kHardfloat;
   sym_kSoftfloat; sym_kMs_abi_default; sym_kMs_abi_cdecl; sym_kSaveregisters;
   sym_kSysv_abi_default; sym_kSysv_abi_cdecl; sym_kVectorcall; sym_kVarargs; sym_kWinapi];
   ACTIONS 11651 [sym_kAlias]; ACTIONS 8336 [sym_kBegin; sym_kClass; sym_kConst;
   sym_kConstructor; sym_kDestructor; sym_kEnd; sym_kExports; sym_kFunction];
   ACTIONS 1016 [sym_kInline]; ACTIONS 8336 [sym_kLabel; sym_kProcedure; sym_kResourcestring;
   sym_kThreadvar; sym_kType; sym_kUses; sym_kVar]].

(** State 2546. *)
Definition ts_parse_table_2546 : parse_row :=
  [ACTIONS 10590 [anon_sym_LBRACK; aux_sym_ppUsesBlock_token1]; ACTIONS 3 [sym__space];
   ACTIONS 5 [sym_ppDirective]; ACTIONS 3 [sym_comment]; ACTIONS 10590 [sym_kDefault;
   sym_kNodefault; sym_kDispId; sym_kGeneric; sym_kOperator; sym_kPublished; sym_kPublic;
   sym_kProtected; sym_kPrivate; sym_kStrict; sym_kRequired; sym_kOptional; sym_kStatic;
   sym_kVirtual; sym_kAbstract; sym_kDynamic; sym_kOverride; sym_kOverload; sym_kReintroduce;
   sym_kStdcall; sym_kCdecl; sym_kCppdecl; sym_kPascal; sym_kRegister; sym_kMwpascal;
   sym_kMessage; sym_kDeprecated; sym_kExperimental; sym_kPlatform; sym_kUnimplemented;
   sym_kCvar; sym_kExport; sym_kFar; sym_kNear; sym_kSafecall; sym_kAssembler; sym_kNostackframe;
   sym_kInterrupt; sym_kNoreturn; sym_kIocheck; sym_kLocal; sym_kHardfloat; sym_kSoftfloat;
   sym_kMs_abi_default; sym_kMs_abi_cdecl; sym_kSaveregisters; sym_kSysv_abi_default;
   sym_kSysv_abi_cdecl; sym_kVectorcall; sym_kVarargs; sym_kWinapi; sym_kAlias; sym_kCase;
   sym_kClass; sym_kConst; sym_kConstructor; sym_kDestructor; sym_kEnd; sym_kFunction;
   sym_kInline; sym_kProcedure; sym_kProperty; sym_kResourcestring; sym_kThreadvar; sym_kType;
   sym_kVar]].

(** State 2547. *)
Definition ts_parse_table_2547 : parse_row :=
  [ACTIONS 10638 [anon_sym_LBRACK; aux_sym_ppUsesBlock_token1]; ACTIONS 3 [sym__space];
   ACTIONS 5 [sym_ppDirective]; ACTIONS 3 [sym_comment]; ACTIONS 10638 [sym_kDefault;
   sym_kNodefault; sym_kDispId; sym_kGeneric; sym_kOperator; sym_kPublic; sym_kStatic;
   sym_kVirtual; sym_kAbstract; sym_kDynamic; sym_kOverride; sym_kOverload; sym_kReintroduce;
   sym_kStdcall; sym_kCdecl; sym_kCppdecl; sym_kPascal; sym_kRegister; sym_kMwpascal;
   sym_kMessage; sym_kDeprecated; sym_kExperimental; sym_kPlatform; sym_kUnimplemented;
   sym_kCvar; sym_kExport; sym_kFar; sym_kNear; sym_kSafecall; sym_kAssembler; sym_kNostackframe;
   sym_kInterrupt; sym_kNoreturn; sym_kIocheck; sym_kLocal; sym_kHardfloat; sym_kSoftfloat;
   sym_kMs_abi_default; sym_kMs_abi_cdecl; sym_kSaveregisters; sym_kSysv_abi_default;
   sym_kSysv_abi_cdecl; sym_kVectorcall; sym_kVarargs; sym_kWinapi; sym_kAlias; sym_kBegin;
   sym_kClass; sym_kConst; sym_kConstructor; sym_kDestructor; sym_kEnd; sym_kExports;
   sym_kFinalization; sym_kFunction; sym_kImplementation; sym_kInitialization; sym_kInline;
   sym_kInterface; sym_kLabel; sym_kProcedure; sym_kResourcestring; sym_kThreadvar; sym_kType;
   sym_kUses; sym_kVar]].

(** State 2548. *)
Definition ts_parse_table_2548 : parse_row :=
  [ACTIONS 10594 [anon_sym_LBRACK; aux_sym_ppUsesBlock_token1]; ACTIONS 3 [sym__space];
   ACTIONS 5 [sym_ppDirective]; ACTIONS 3 [sym_comment]; ACTIONS 10594 [sym_kDefault;
   sym_kNodefault; sym_kDispId; sym_kGeneric; sym_kOperator; sym_kPublished; sym_kPublic;
   sym_kProtected; sym_kPrivate; sym_kStrict; sym_kRequired; sym_kOptional; sym_kStatic;
   sym_kVirtual; sym_kAbstract; sym_kDynamic; sym_kOverride; sym_kOverload; sym_kReintroduce;
   sym_kStdcall; sym_kCdecl; sym_kCppdecl; sym_kPascal; sym_kRegister; sym_kMwpascal;
   sym_kMessage; sym_kDeprecated; sym_kExperimental; sym_kPlatform; sym_kUnimplemented;
   sym_kCvar; sym_kExport; sym_kFar; sym_kNear; sym_kSafecall; sym_kAssembler; sym_kNostackframe;
   sym_kInterrupt; sym_kNoreturn; sym_kIocheck; sym_kLocal; sym_kHardfloat; sym_kSoftfloat;
   sym_kMs_abi_default; sym_kMs_abi_cdecl; sym_kSaveregisters; sym_kSysv_abi_default;
   sym_kSysv_abi_cdecl; sym_kVectorcall; sym_kVarargs; sym_kWinapi; sym_kAlias; sym_kCase;
   sym_kClass; sym_kConst; sym_kConstructor; sym_kDestructor; sym_kEnd; sym_kFunction;
   sym_kInline; sym_kProcedure; sym_kProperty; sym_kResourcestring; sym_kThreadvar; sym_kType;
   sym_kVar]].

(** State 2549. *)
Definition ts_parse_table_2549 : parse_row :=
  [ACTIONS 10594 [anon_sym_LBRACK; aux_sym_ppUsesBlock_token1]; ACTIONS 3 [sym__space];
   ACTIONS 5 [sym_ppDirective]; ACTIONS 3 [sym_comment]; ACTIONS 10594 [sym_kDefault;
   sym_kNodefault; sym_kDispId; sym_kGeneric; sym_kOperator; sym_kPublished; sym_kPublic;
   sym_kProtected; sym_kPrivate; sym_kStrict; sym_kRequired; sym_kOptional; sym_kStatic;
   sym_kVirtual; sym_kAbstract; sym_kDynamic; sym_kOverride; sym_kOverload; sym_kReintroduce;
   sym_kStdcall; sym_kCdecl; sym_kCppdecl; sym_kPascal; sym_kRegister; sym_kMwpascal;
   sym_kMessage; sym_kDeprecated; sym_kExperimental; sym_kPlatform; sym_kUnimplemented;
   sym_kCvar; sym_kExport; sym_kFar; sym_kNear; sym_kSafecall; sym_kAssembler; sym_kNostackframe;
   sym_kInterrupt; sym_kNoreturn; sym_kIocheck; sym_kLocal; sym_kHardfloat; sym_kSoftfloat;
   sym_kMs_abi_default; sym_kMs_abi_cdecl; sym_kSaveregisters; sym_kSysv_abi_default;
   sym_kSysv_abi_cdecl; sym_kVectorcall; sym_kVarargs; sym_kWinapi; sym_kAlias; sym_kCase;
   sym_kClass; sym_kConst; sym_kConstructor; sym_kDestructor; sym_kEnd; sym_kFunction;
   sym_kInline; sym_kProcedure; sym_kProperty; sym_kResourcestring; sym_kThreadvar; sym_kType;
   sym_kVar]].

(** State 2550. *)
Definition ts_parse_table_2550 : parse_row :=
  [STATE 2661 [sym__procAttribute]; STATE 15438 [sym_procAttribute];
   STATE 2512 [aux_sym_declProcFwd_repeat1]; ACTIONS 14687 [anon_sym_LBRACK];
   ACTIONS 8420 [aux_sym_ppUsesBlock_token1]; ACTIONS 3 [sym__space];
   ACTIONS 5 [sym_ppDirective]; ACTIONS 3 [sym_comment]; ACTIONS 8420 [sym_identifier];
   ACTIONS 1016 [sym_kDefault; sym_kNodefault]; ACTIONS 11641 [sym_kDispId];
   ACTIONS 8420 [sym_kGeneric; sym_kOperator]; ACTIONS 11643 [sym_kPublic];
   ACTIONS 1016 [sym_kStatic; sym_kVirtual; sym_kAbstract; sym_kDynamic; sym_kOverride;
   sym_kOverload; sym_kReintroduce; sym_kStdcall; sym_kCdecl; sym_kCppdecl; sym_kPascal;
   sym_kRegister; sym_kMwpascal]; ACTIONS 11645 [sym_kMessage]; ACTIONS 11647 [sym_kDeprecated];
   ACTIONS 1016 [sym_kExperimental; sym_kPlatform; sym_kUnimplemented; sym_kCvar];
   ACTIONS 11649 [sym_kExport]; ACTIONS 1016 [sym_kFar; sym_kNear; sym_kSafecall; sym_kAssembler;
   sym_kNostackframe; sym_kInterrupt; sym_kNoreturn; sym_kIocheck; sym_kLocal; sym_kHardfloat;
   sym_kSoftfloat; sym_kMs_abi_default; sym_kMs_abi_cdecl; sym_kSaveregisters;
   sym_kSysv_abi_default; sym_kSysv_abi_cdecl; sym_kVectorcall; sym_kVarargs; sym_kWinapi];
   ACTIONS 11651 [sym_kAlias]; ACTIONS 8420 [sym_kBegin; sym_kClass; sym_kConst;
   sym_kConstructor; sym_kDestructor; sym_kEnd; sym_kExports; sym_kFunction];
   ACTIONS 1016 [sym_kInline]; ACTIONS 8420 [sym_kLabel; sym_kProcedure; sym_kResourcestring;
   sym_kThreadvar; sym_kType; sym_kUses; sym_kVar]].

(** State 2551. *)
Definition ts_parse_table_2551 : parse_row :=
  [STATE 2663 [sym__procAttribute]; STATE 15213 [sym_procAttribute];
   STATE 2575 [aux_sym_declProcFwd_repeat1]; ACTIONS 8250 [ts_builtin_sym_end];
   ACTIONS 14690 [anon_sym_LBRACK]; ACTIONS 8250 [aux_sym_ppUsesBlock_token1];
   ACTIONS 3 [sym__space]; ACTIONS 5 [sym_ppDirective]; ACTIONS 3 [sym_comment];
   ACTIONS 8250 [sym_identifier]; ACTIONS 1016 [sym_kDefault; sym_kNodefault];
   ACTIONS 11641 [sym_kDispId]; ACTIONS 8250 [sym_kGeneric; sym_kOperator];
   ACTIONS 11643 [sym_kPublic]; ACTIONS 1016 [sym_kStatic; sym_kVirtual; sym_kAbstract;
   sym_kDynamic; sym_kOverride; sym_kOverload; sym_kReintroduce; sym_kStdcall; sym_kCdecl;
   sym_kCppdecl; sym_kPascal; sym_kRegister; sym_kMwpascal]; ACTIONS 11645 [sym_kMessage];
   ACTIONS 11647 [sym_kDeprecated]; ACTIONS 1016 [sym_kExperimental; sym_kPlatform;
   sym_kUnimplemented; sym_kCvar]; ACTIONS 11649 [sym_kExport]; ACTIONS 1016 [sym_kFar;
   sym_kNear; sym_kSafecall; sym_kAssembler; sym_kNostackframe; sym_kInterrupt; sym_kNoreturn;
   sym_kIocheck; sym_kLocal; sym_kHardfloat; sym_kSoftfloat; sym_kMs_abi_default;
   sym_kMs_abi_cdecl; sym_kSaveregisters; sym_kSysv_abi_default; sym_kSysv_abi_cdecl;
   sym_kVectorcall; sym_kVarargs; sym_kWinapi]; ACTIONS 11651 [sym_kAlias];
   ACTIONS 8250 [sym_kBegin; sym_kClass; sym_kConst; sym_kConstructor; sym_kDestructor;
   sym_kExports; sym_kFunction]; ACTIONS 1016 [sym_kInline]; ACTIONS 8250 [sym_kLabel;
   sym_kProcedure; sym_kResourcestring; sym_kThreadvar; sym_kType; sym_kUses; sym_kVar]].

(** State 2552. *)
Definition ts_parse_table_2552 : parse_row :=
  [STATE 2663 [sym__procAttribute]; STATE 15213 [sym_procAttribute];
   STATE 2507 [aux_sym_declProcFwd_repeat1]; ACTIONS 8278 [ts_builtin_sym_end];
   ACTIONS 14693 [anon_sym_LBRACK]; ACTIONS 8278 [aux_sym_ppUsesBlock_token1];
   ACTIONS 3 [sym__space]; ACTIONS 5 [sym_ppDirective]; ACTIONS 3 [sym_comment];
   ACTIONS 8278 [sym_identifier]; ACTIONS 1016 [sym_kDefault; sym_kNodefault];
   ACTIONS 11641 [sym_kDispId]; ACTIONS 8278 [sym_kGeneric; sym_kOperator];
   ACTIONS 11643 [sym_kPublic]; ACTIONS 1016 [sym_kStatic; sym_kVirtual; sym_kAbstract;
   sym_kDynamic; sym_kOverride; sym_kOverload; sym_kReintroduce; sym_kStdcall; sym_kCdecl;
   sym_kCppdecl; sym_kPascal; sym_kRegister; sym_kMwpascal]; ACTIONS 11645 [sym_kMessage];
   ACTIONS 11647 [sym_kDeprecated]; ACTIONS 1016 [sym_kExperimental; sym_kPlatform;
   sym_kUnimplemented; sym_kCvar]; ACTIONS 11649 [sym_kExport]; ACTIONS 1016 [sym_kFar;
   sym_kNear; sym_kSafecall; sym_kAssembler; sym_kNostackframe; sym_kInterrupt; sym_kNoreturn;
   sym_kIocheck; sym_kLocal; sym_kHardfloat; sym_kSoftfloat; sym_kMs_abi_default;
   sym_kMs_abi_cdecl; sym_kSaveregisters; sym_kSysv_abi_default; sym_kSysv_abi_cdecl;
   sym_kVectorcall; sym_kVarargs; sym_kWinapi]; ACTIONS 11651 [sym_kAlias];
   ACTIONS 8278 [sym_kBegin; sym_kClass; sym_kConst; sym_kConstructor; sym_kDestructor;
   sym_kExports; sym_kFunction]; ACTIONS 1016 [sym_kInline]; ACTIONS 8278 [sym_kLabel;
   sym_kProcedure; sym_kResourcestring; sym_kThreadvar; sym_kType; sym_kUses; sym_kVar]].

(** State 2553. *)
Definition ts_parse_table_2553 : parse_row :=
  [ACTIONS 10614 [anon_sym_LBRACK; aux_sym_ppUsesBlock_token1]; ACTIONS 3 [sym__space];
   ACTIONS 5 [sym_ppDirective]; ACTIONS 3 [sym_comment]; ACTIONS 10614 [sym_kDefault;
   sym_kNodefault; sym_kDispId; sym_kGeneric; sym_kOperator; sym_kPublic; sym_kStatic;
   sym_kVirtual; sym_kAbstract; sym_kDynamic; sym_kOverride; sym_kOverload; sym_kReintroduce;
   sym_kStdcall; sym_kCdecl; sym_kCppdecl; sym_kPascal; sym_kRegister; sym_kMwpascal;
   sym_kMessage; sym_kDeprecated; sym_kExperimental; sym_kPlatform; sym_kUnimplemented;
   sym_kCvar; sym_kExport; sym_kFar; sym_kNear; sym_kSafecall; sym_kAssembler; sym_kNostackframe;
   sym_kInterrupt; sym_kNoreturn; sym_kIocheck; sym_kLocal; sym_kHardfloat; sym_kSoftfloat;
   sym_kMs_abi_default; sym_kMs_abi_cdecl; sym_kSaveregisters; sym_kSysv_abi_default;
   sym_kSysv_abi_cdecl; sym_kVectorcall; sym_kVarargs; sym_kWinapi; sym_kAlias; sym_kBegin;
   sym_kClass; sym_kConst; sym_kConstructor; sym_kDestructor; sym_kEnd; sym_kExports;
   sym_kFinalization; sym_kFunction; sym_kImplementation; sym_kInitialization; sym_kInline;
   sym_kInterface; sym_kLabel; sym_kProcedure; sym_kResourcestring; sym_kThreadvar; sym_kType;
   sym_kUses; sym_kVar]].

(** State 2554. *)
Definition ts_parse_table_2554 : parse_row :=
  [ACTIONS 9834 [anon_sym_LBRACK; aux_sym_ppUsesBlock_token1]; ACTIONS 3 [sym__space];
   ACTIONS 5 [sym_ppDirective]; ACTIONS 3 [sym_comment]; ACTIONS 9834 [sym_kDefault;
   sym_kNodefault; sym_kDispId; sym_kGeneric; sym_kOperator; sym_kPublic; sym_kStatic;
   sym_kVirtual; sym_kAbstract; sym_kDynamic; sym_kOverride; sym_kOverload; sym_kReintroduce;
   sym_kStdcall; sym_kCdecl; sym_kCppdecl; sym_kPascal; sym_kRegister; sym_kMwpascal;
   sym_kMessage; sym_kDeprecated; sym_kExperimental; sym_kPlatform; sym_kUnimplemented;
   sym_kCvar; sym_kExport; sym_kFar; sym_kNear; sym_kSafecall; sym_kAssembler; sym_kNostackframe;
   sym_kInterrupt; sym_kNoreturn; sym_kIocheck; sym_kLocal; sym_kHardfloat; sym_kSoftfloat;
   sym_kMs_abi_default; sym_kMs_abi_cdecl; sym_kSaveregisters; sym_kSysv_abi_default;
   sym_kSysv_abi_cdecl; sym_kVectorcall; sym_kVarargs; sym_kWinapi; sym_kAlias; sym_kClass;
   sym_kConst; sym_kConstructor; sym_kDestructor; sym_kEnd; sym_kExports; sym_kFinalization;
   sym_kFunction; sym_kImplementation; sym_kInitialization; sym_kInline; sym_kInterface;
   sym_kLabel; sym_kProcedure; sym_kProperty; sym_kResourcestring; sym_kThreadvar; sym_kType;
   sym_kUses; sym_kVar]].

(** State 2555. *)
Definition ts_parse_table_2555 : parse_row :=
  [STATE 2661 [sym__procAttribute]; STATE 15438 [sym_procAttribute];
   STATE 2512 [aux_sym_declProcFwd_repeat1]; ACTIONS 14696 [anon_sym_LBRACK];
   ACTIONS 8476 [aux_sym_ppUsesBlock_token1]; ACTIONS 3 [sym__space];
   ACTIONS 5 [sym_ppDirective]; ACTIONS 3 [sym_comment]; ACTIONS 8476 [sym_identifier];
   ACTIONS 1016 [sym_kDefault; sym_kNodefault]; ACTIONS 11641 [sym_kDispId];
   ACTIONS 8476 [sym_kGeneric; sym_kOperator]; ACTIONS 11643 [sym_kPublic];
   ACTIONS 1016 [sym_kStatic; sym_kVirtual; sym_kAbstract; sym_kDynamic; sym_kOverride;
   sym_kOverload; sym_kReintroduce; sym_kStdcall; sym_kCdecl; sym_kCppdecl; sym_kPascal;
   sym_kRegister; sym_kMwpascal]; ACTIONS 11645 [sym_kMessage]; ACTIONS 11647 [sym_kDeprecated];
   ACTIONS 1016 [sym_kExperimental; sym_kPlatform; sym_kUnimplemented; sym_kCvar];
   ACTIONS 11649 [sym_kExport]; ACTIONS 1016 [sym_kFar; sym_kNear; sym_kSafecall; sym_kAssembler;
   sym_kNostackframe; sym_kInterrupt; sym_kNoreturn; sym_kIocheck; sym_kLocal; sym_kHardfloat;
   sym_kSoftfloat; sym_kMs_abi_default; sym_kMs_abi_cdecl; sym_kSaveregisters;
   sym_kSysv_abi_default; sym_kSysv_abi_cdecl; sym_kVectorcall; sym_kVarargs; sym_kWinapi];
   ACTIONS 11651 [sym_kAlias]; ACTIONS 8476 [sym_kBegin; sym_kClass; sym_kConst;
   sym_kConstructor; sym_kDestructor; sym_kEnd; sym_kExports; sym_kFunction];
   ACTIONS 1016 [sym_kInline]; ACTIONS 8476 [sym_kLabel; sym_kProcedure; sym_kResourcestring;
   sym_kThreadvar; sym_kType; sym_kUses; sym_kVar]].

(** State 2556. *)
Definition ts_parse_table_2556 : parse_row :=
  [STATE 2661 [sym__procAttribute]; STATE 15438 [sym_procAttribute];
   STATE 2565 [aux_sym_declProcFwd_repeat1]; ACTIONS 14699 [anon_sym_LBRACK];
   ACTIONS 8504 [aux_sym_ppUsesBlock_token1]; ACTIONS 3 [sym__space];
   ACTIONS 5 [sym_ppDirective]; ACTIONS 3 [sym_comment]; ACTIONS 8504 [sym_identifier];
   ACTIONS 1016 [sym_kDefault; sym_kNodefault]; ACTIONS 11641 [sym_kDispId];
   ACTIONS 8504 [sym_kGeneric; sym_kOperator]; ACTIONS 11643 [sym_kPublic];
   ACTIONS 1016 [sym_kStatic; sym_kVirtual; sym_kAbstract; sym_kDynamic; sym_kOverride;
   sym_kOverload; sym_kReintroduce; sym_kStdcall; sym_kCdecl; sym_kCppdecl; sym_kPascal;
   sym_kRegister; sym_kMwpascal]; ACTIONS 11645 [sym_kMessage]; ACTIONS 11647 [sym_kDeprecated];
   ACTIONS 1016 [sym_kExperimental; sym_kPlatform; sym_kUnimplemented; sym_kCvar];
   ACTIONS 11649 [sym_kExport]; ACTIONS 1016 [sym_kFar; sym_kNear; sym_kSafecall; sym_kAssembler;
   sym_kNostackframe; sym_kInterrupt; sym_kNoreturn; sym_kIocheck; sym_kLocal; sym_kHardfloat;
   sym_kSoftfloat; sym_kMs_abi_default; sym_kMs_abi_cdecl; sym_kSaveregisters;
   sym_kSysv_abi_default; sym_kSysv_abi_cdecl; sym_kVectorcall; sym_kVarargs; sym_kWinapi];
   ACTIONS 11651 [sym_kAlias]; ACTIONS 8504 [sym_kBegin; sym_kClass; sym_kConst;
   sym_kConstructor; sym_kDestructor; sym_kEnd; sym_kExports; sym_kFunction];
   ACTIONS 1016 [sym_kInline]; ACTIONS 8504 [sym_kLabel; sym_kProcedure; sym_kResourcestring;
   sym_kThreadvar; sym_kType; sym_kUses; sym_kVar]].

(** State 2557. *)
Definition ts_parse_table_2557 : parse_row :=
  [STATE 2661 [sym__procAttribute]; STATE 15438 [sym_procAttribute];
   STATE 2512 [aux_sym_declProcFwd_repeat1]; ACTIONS 14702 [anon_sym_LBRACK];
   ACTIONS 8532 [aux_sym_ppUsesBlock_token1]; ACTIONS 3 [sym__space];
   ACTIONS 5 [sym_ppDirective]; ACTIONS 3 [sym_comment]; ACTIONS 8532 [sym_identifier];
   ACTIONS 1016 [sym_kDefault; sym_kNodefault]; ACTIONS 11641 [sym_kDispId];
   ACTIONS 8532 [sym_kGeneric; sym_kOperator]; ACTIONS 11643 [sym_kPublic];
   ACTIONS 1016 [sym_kStatic; sym_kVirtual; sym_kAbstract; sym_kDynamic; sym_kOverride;
   sym_kOverload; sym_kReintroduce; sym_kStdcall; sym_kCdecl; sym_kCppdecl; sym_kPascal;
   sym_kRegister; sym_kMwpascal]; ACTIONS 11645 [sym_kMessage]; ACTIONS 11647 [sym_kDeprecated];
   ACTIONS 1016 [sym_kExperimental; sym_kPlatform; sym_kUnimplemented; sym_kCvar];
   ACTIONS 11649 [sym_kExport]; ACTIONS 1016 [sym_kFar; sym_kNear; sym_kSafecall; sym_kAssembler;
   sym_kNostackframe; sym_kInterrupt; sym_kNoreturn; sym_kIocheck; sym_kLocal; sym_kHardfloat;
   sym_kSoftfloat; sym_kMs_abi_default; sym_kMs_abi_cdecl; sym_kSaveregisters;
   sym_kSysv_abi_default; sym_kSysv_abi_cdecl; sym_kVectorcall; sym_kVarargs; sym_kWinapi];
   ACTIONS 11651 [sym_kAlias]; ACTIONS 8532 [sym_kBegin; sym_kClass; sym_kConst;
   sym_kConstructor; sym_kDestructor; sym_kEnd; sym_kExports; sym_kFunction];
   ACTIONS 1016 [sym_kInline]; ACTIONS 8532 [sym_kLabel; sym_kProcedure; sym_kResourcestring;
   sym_kThreadvar; sym_kType; sym_kUses; sym_kVar]].

(** State 2558. *)
Definition ts_parse_table_2558 : parse_row :=
  [ACTIONS 9810 [anon_sym_LBRACK; aux_sym_ppUsesBlock_token1]; ACTIONS 3 [sym__space];
   ACTIONS 5 [sym_ppDirective]; ACTIONS 3 [sym_comment]; ACTIONS 9810 [sym_identifier;
   sym_kDefault; sym_kNodefault; sym_kDispId; sym_kGeneric; sym_kOperator; sym_kPublished;
   sym_kPublic; sym_kProtected; sym_kPrivate; sym_kStrict; sym_kRequired; sym_kOptional;
   sym_kStatic; sym_kVirtual; sym_kAbstract; sym_kDynamic; sym_kOverride; sym_kOverload;
   sym_kReintroduce; sym_kStdcall; sym_kCdecl; sym_kCppdecl; sym_kPascal; sym_kRegister;
   sym_kMwpascal; sym_kMessage; sym_kDeprecated; sym_kExperimental; sym_kPlatform;
   sym_kUnimplemented; sym_kCvar; sym_kExport; sym_kFar; sym_kNear; sym_kSafecall;
   sym_kAssembler; sym_kNostackframe; sym_kInterrupt; sym_kNoreturn; sym_kIocheck; sym_kLocal;
   sym_kHardfloat; sym_kSoftfloat; sym_kMs_abi_default; sym_kMs_abi_cdecl; sym_kSaveregisters;
   sym_kSysv_abi_default; sym_kSysv_abi_cdecl; sym_kVectorcall; sym_kVarargs; sym_kWinapi;
   sym_kAlias; sym_kCase; sym_kClass; sym_kConst; sym_kConstructor; sym_kDestructor; sym_kEnd;
   sym_kFunction; sym_kProcedure; sym_kProperty; sym_kResourcestring; sym_kThreadvar; sym_kType;
   sym_kVar]].

(** State 2559. *)
Definition ts_parse_table_2559 : parse_row :=
  [ACTIONS 9838 [anon_sym_LBRACK; aux_sym_ppUsesBlock_token1]; ACTIONS 3 [sym__space];
   ACTIONS 5 [sym_ppDirective]; ACTIONS 3 [sym_comment]; ACTIONS 9838 [sym_kDefault;
   sym_kNodefault; sym_kDispId; sym_kGeneric; sym_kOperator; sym_kPublic; sym_kStatic;
   sym_kVirtual; sym_kAbstract; sym_kDynamic; sym_kOverride; sym_kOverload; sym_kReintroduce;
   sym_kStdcall; sym_kCdecl; sym_kCppdecl; sym_kPascal; sym_kRegister; sym_kMwpascal;
   sym_kMessage; sym_kDeprecated; sym_kExperimental; sym_kPlatform; sym_kUnimplemented;
   sym_kCvar; sym_kExport; sym_kFar; sym_kNear; sym_kSafecall; sym_kAssembler; sym_kNostackframe;
   sym_kInterrupt; sym_kNoreturn; sym_kIocheck; sym_kLocal; sym_kHardfloat; sym_kSoftfloat;
   sym_kMs_abi_default; sym_kMs_abi_cdecl; sym_kSaveregisters; sym_kSysv_abi_default;
   sym_kSysv_abi_cdecl; sym_kVectorcall; sym_kVarargs; sym_kWinapi; sym_kAlias; sym_kClass;
   sym_kConst; sym_kConstructor; sym_kDestructor; sym_kEnd; sym_kExports; sym_kFinalization;
   sym_kFunction; sym_kImplementation; sym_kInitialization; sym_kInline; sym_kInterface;
   sym_kLabel; sym_kProcedure; sym_kProperty; sym_kResourcestring; sym_kThreadvar; sym_kType;
   sym_kUses; sym_kVar]].

(** State 2560. *)
Definition ts_parse_table_2560 : parse_row :=
  [ACTIONS 10796 [anon_sym_LBRACK; aux_sym_ppUsesBlock_token1]; ACTIONS 3 [sym__space];
   ACTIONS 5 [sym_ppDirective]; ACTIONS 3 [sym_comment]; ACTIONS 10796 [sym_kDefault;
   sym_kNodefault; sym_kDispId; sym_kGeneric; sym_kOperator; sym_kPublic; sym_kStatic;
   sym_kVirtual; sym_kAbstract; sym_kDynamic; sym_kOverride; sym_kOverload; sym_kReintroduce;
   sym_kStdcall; sym_kCdecl; sym_kCppdecl; sym_kPascal; sym_kRegister; sym_kMwpascal;
   sym_kMessage; sym_kDeprecated; sym_kExperimental; sym_kPlatform; sym_kUnimplemented;
   sym_kCvar; sym_kExport; sym_kFar; sym_kNear; sym_kSafecall; sym_kAssembler; sym_kNostackframe;
   sym_kInterrupt; sym_kNoreturn; sym_kIocheck; sym_kLocal; sym_kHardfloat; sym_kSoftfloat;
   sym_kMs_abi_default; sym_kMs_abi_cdecl; sym_kSaveregisters; sym_kSysv_abi_default;
   sym_kSysv_abi_cdecl; sym_kVectorcall; sym_kVarargs; sym_kWinapi; sym_kAlias; sym_kBegin;
   sym_kClass; sym_kConst; sym_kConstructor; sym_kDestructor; sym_kEnd; sym_kExports;
   sym_kFinalization; sym_kFunction; sym_kImplementation; sym_kInitialization; sym_kInline;
   sym_kInterface; sym_kLabel; sym_kProcedure; sym_kResourcestring; sym_kThreadvar; sym_kType;
   sym_kUses; sym_kVar]].

(** State 2561. *)
Definition ts_parse_table_2561 : parse_row :=
  [ACTIONS 9868 [anon_sym_LBRACK; aux_sym_ppUsesBlock_token1]; ACTIONS 3 [sym__space];
   ACTIONS 5 [sym_ppDirective]; ACTIONS 3 [sym_comment]; ACTIONS 9868 [sym_kDefault;
   sym_kNodefault; sym_kDispId; sym_kGeneric; sym_kOperator; sym_kPublic; sym_kStatic;
   sym_kVirtual; sym_kAbstract; sym_kDynamic; sym_kOverride; sym_kOverload; sym_kReintroduce;
   sym_kStdcall; sym_kCdecl; sym_kCppdecl; sym_kPascal; sym_kRegister; sym_kMwpascal;
   sym_kMessage; sym_kDeprecated; sym_kExperimental; sym_kPlatform; sym_kUnimplemented;
   sym_kCvar; sym_kExport; sym_kFar; sym_kNear; sym_kSafecall; sym_kAssembler; sym_kNostackframe;
   sym_kInterrupt; sym_kNoreturn; sym_kIocheck; sym_kLocal; sym_kHardfloat; sym_kSoftfloat;
   sym_kMs_abi_default; sym_kMs_abi_cdecl; sym_kSaveregisters; sym_kSysv_abi_default;
   sym_kSysv_abi_cdecl; sym_kVectorcall; sym_kVarargs; sym_kWinapi; sym_kAlias; sym_kClass;
   sym_kConst; sym_kConstructor; sym_kDestructor; sym_kEnd; sym_kExports; sym_kFinalization;
   sym_kFunction; sym_kImplementation; sym_kInitialization; sym_kInline; sym_kInterface;
   sym_kLabel; sym_kProcedure; sym_kProperty; sym_kResourcestring; sym_kThreadvar; sym_kType;
   sym_kUses; sym_kVar]].

(** State 2562. *)
Definition ts_parse_table_2562 : parse_row :=
  [ACTIONS 9850 [anon_sym_LBRACK; aux_sym_ppUsesBlock_token1]; ACTIONS 3 [sym__space];
   ACTIONS 5 [sym_ppDirective]; ACTIONS 3 [sym_comment]; ACTIONS 9850 [sym_kDefault;
   sym_kNodefault; sym_kDispId; sym_kGeneric; sym_kOperator; sym_kPublished; sym_kPublic;
   sym_kProtected; sym_kPrivate; sym_kStrict; sym_kRequired; sym_kOptional; sym_kStatic;
   sym_kVirtual; sym_kAbstract; sym_kDynamic; sym_kOverride; sym_kOverload; sym_kReintroduce;
   sym_kStdcall; sym_kCdecl; sym_kCppdecl; sym_kPascal; sym_kRegister; sym_kMwpascal;
   sym_kMessage; sym_kDeprecated; sym_kExperimental; sym_kPlatform; sym_kUnimplemented;
   sym_kCvar; sym_kExport; sym_kFar; sym_kNear; sym_kSafecall; sym_kAssembler; sym_kNostackframe;
   sym_kInterrupt; sym_kNoreturn; sym_kIocheck; sym_kLocal; sym_kHardfloat; sym_kSoftfloat;
   sym_kMs_abi_default; sym_kMs_abi_cdecl; sym_kSaveregisters; sym_kSysv_abi_default;
   sym_kSysv_abi_cdecl; sym_kVectorcall; sym_kVarargs; sym_kWinapi; sym_kAlias; sym_kCase;
   sym_kClass; sym_kConst; sym_kConstructor; sym_kDestructor; sym_kEnd; sym_kFunction;
   sym_kInline; sym_kProcedure; sym_kProperty; sym_kResourcestring; sym_kThreadvar; sym_kType;
   sym_kVar]].

(** State 2563. *)
Definition ts_parse_table_2563 : parse_row :=
  [ACTIONS 11005 [anon_sym_LBRACK; aux_sym_ppUsesBlock_token1]; ACTIONS 3 [sym__space];
   ACTIONS 5 [sym_ppDirective]; ACTIONS 3 [sym_comment]; ACTIONS 11005 [sym_identifier;
   sym_kDefault; sym_kNodefault; sym_kDispId; sym_kGeneric; sym_kOperator; sym_kPublished;
   sym_kPublic; sym_kProtected; sym_kPrivate; sym_kStrict; sym_kRequired; sym_kOptional;
   sym_kStatic; sym_kVirtual; sym_kAbstract; sym_kDynamic; sym_kOverride; sym_kOverload;
   sym_kReintroduce; sym_kStdcall; sym_kCdecl; sym_kCppdecl; sym_kPascal; sym_kRegister;
   sym_kMwpascal; sym_kMessage; sym_kDeprecated; sym_kExperimental; sym_kPlatform;
   sym_kUnimplemented; sym_kCvar; sym_kExport; sym_kFar; sym_kNear; sym_kSafecall;
   sym_kAssembler; sym_kNostackframe; sym_kInterrupt; sym_kNoreturn; sym_kIocheck; sym_kLocal;
   sym_kHardfloat; sym_kSoftfloat; sym_kMs_abi_default; sym_kMs_abi_cdecl; sym_kSaveregisters;
   sym_kSysv_abi_default; sym_kSysv_abi_cdecl; sym_kVectorcall; sym_kVarargs; sym_kWinapi;
   sym_kAlias; sym_kCase; sym_kClass; sym_kConst; sym_kConstructor; sym_kDestructor; sym_kEnd;
   sym_kFunction; sym_kProcedure; sym_kProperty; sym_kResourcestring; sym_kThreadvar; sym_kType;
   sym_kVar]].

(** State 2564. *)
Definition ts_parse_table_2564 : parse_row :=
  [ACTIONS 9910 [anon_sym_LBRACK; aux_sym_ppUsesBlock_token1]; ACTIONS 3 [sym__space];
   ACTIONS 5 [sym_ppDirective]; ACTIONS 3 [sym_comment]; ACTIONS 9910 [sym_kDefault;
   sym_kNodefault; sym_kDispId; sym_kGeneric; sym_kOperator; sym_kPublic; sym_kStatic;
   sym_kVirtual; sym_kAbstract; sym_kDynamic; sym_kOverride; sym_kOverload; sym_kReintroduce;
   sym_kStdcall; sym_kCdecl; sym_kCppdecl; sym_kPascal; sym_kRegister; sym_kMwpascal;
   sym_kMessage; sym_kDeprecated; sym_kExperimental; sym_kPlatform; sym_kUnimplemented;
   sym_kCvar; sym_kExport; sym_kFar; sym_kNear; sym_kSafecall; sym_kAssembler; sym_kNostackframe;
   sym_kInterrupt; sym_kNoreturn; sym_kIocheck; sym_kLocal; sym_kHardfloat; sym_kSoftfloat;
   sym_kMs_abi_default; sym_kMs_abi_cdecl; sym_kSaveregisters; sym_kSysv_abi_default;
   sym_kSysv_abi_cdecl; sym_kVectorcall; sym_kVarargs; sym_kWinapi; sym_kAlias; sym_kClass;
   sym_kConst; sym_kConstructor; sym_kDestructor; sym_kEnd; sym_kExports; sym_kFinalization;
   sym_kFunction; sym_kImplementation; sym_kInitialization; sym_kInline; sym_kInterface;
   sym_kLabel; sym_kProcedure; sym_kProperty; sym_kResourcestring; sym_kThreadvar; sym_kType;
   sym_kUses; sym_kVar]].

(** State 2565. *)
Definition ts_parse_table_2565 : parse_row :=
  [STATE 2661 [sym__procAttribute]; STATE 15438 [sym_procAttribute];
   STATE 2512 [aux_sym_declProcFwd_repeat1]; ACTIONS 14705 [anon_sym_LBRACK];
   ACTIONS 8756 [aux_sym_ppUsesBlock_token1]; ACTIONS 3 [sym__space];
   ACTIONS 5 [sym_ppDirective]; ACTIONS 3 [sym_comment]; ACTIONS 8756 [sym_identifier];
   ACTIONS 1016 [sym_kDefault; sym_kNodefault]; ACTIONS 11641 [sym_kDispId];
   ACTIONS 8756 [sym_kGeneric; sym_kOperator]; ACTIONS 11643 [sym_kPublic];
   ACTIONS 1016 [sym_kStatic; sym_kVirtual; sym_kAbstract; sym_kDynamic; sym_kOverride;
   sym_kOverload; sym_kReintroduce; sym_kStdcall; sym_kCdecl; sym_kCppdecl; sym_kPascal;
   sym_kRegister; sym_kMwpascal]; ACTIONS 11645 [sym_kMessage]; ACTIONS 11647 [sym_kDeprecated];
   ACTIONS 1016 [sym_kExperimental; sym_kPlatform; sym_kUnimplemented; sym_kCvar];
   ACTIONS 11649 [sym_kExport]; ACTIONS 1016 [sym_kFar; sym_kNear; sym_kSafecall; sym_kAssembler;
   sym_kNostackframe; sym_kInterrupt; sym_kNoreturn; sym_kIocheck; sym_kLocal; sym_kHardfloat;
   sym_kSoftfloat; sym_kMs_abi_default; sym_kMs_abi_cdecl; sym_kSaveregisters;
   sym_kSysv_abi_default; sym_kSysv_abi_cdecl; sym_kVectorcall; sym_kVarargs; sym_kWinapi];
   ACTIONS 11651 [sym_kAlias]; ACTIONS 8756 [sym_kBegin; sym_kClass; sym_kConst;
   sym_kConstructor; sym_kDestructor; sym_kEnd; sym_kExports; sym_kFunction];
   ACTIONS 1016 [sym_kInline]; ACTIONS 8756 [sym_kLabel; sym_kProcedure; sym_kResourcestring;
   sym_kThreadvar; sym_kType; sym_kUses; sym_kVar]].

(** State 2566. *)
Definition ts_parse_table_2566 : parse_row :=
  [ACTIONS 11049 [anon_sym_LBRACK; aux_sym_ppUsesBlock_token1]; ACTIONS 3 [sym__space];
   ACTIONS 5 [sym_ppDirective]; ACTIONS 3 [sym_comment]; ACTIONS 11049 [sym_identifier;
   sym_kDefault; sym_kNodefault; sym_kDispId; sym_kGeneric; sym_kOperator; sym_kPublished;
   sym_kPublic; sym_kProtected; sym_kPrivate; sym_kStrict; sym_kRequired; sym_kOptional;
   sym_kStatic; sym_kVirtual; sym_kAbstract; sym_kDynamic; sym_kOverride; sym_kOverload;
   sym_kReintroduce; sym_kStdcall; sym_kCdecl; sym_kCppdecl; sym_kPascal; sym_kRegister;
   sym_kMwpascal; sym_kMessage; sym_kDeprecated; sym_kExperimental; sym_kPlatform;
   sym_kUnimplemented; sym_kCvar; sym_kExport; sym_kFar; sym_kNear; sym_kSafecall;
   sym_kAssembler; sym_kNostackframe; sym_kInterrupt; sym_kNoreturn; sym_kIocheck; sym_kLocal;
   sym_kHardfloat; sym_kSoftfloat; sym_kMs_abi_default; sym_kMs_abi_cdecl; sym_kSaveregisters;
   sym_kSysv_abi_default; sym_kSysv_abi_cdecl; sym_kVectorcall; sym_kVarargs; sym_kWinapi;
   sym_kAlias; sym_kCase; sym_kClass; sym_kConst; sym_kConstructor; sym_kDestructor; sym_kEnd;
   sym_kFunction; sym_kProcedure; sym_kProperty; sym_kResourcestring; sym_kThreadvar; sym_kType;
   sym_kVar]].

(** State 2567. *)
Definition ts_parse_table_2567 : parse_row :=
  [STATE 2663 [sym__procAttribute]; STATE 15213 [sym_procAttribute];
   STATE 2507 [aux_sym_declProcFwd_repeat1]; ACTIONS 8842 [ts_builtin_sym_end];
   ACTIONS 14708 [anon_sym_LBRACK]; ACTIONS 8842 [aux_sym_ppUsesBlock_token1];
   ACTIONS 3 [sym__space]; ACTIONS 5 [sym_ppDirective]; ACTIONS 3 [sym_comment];
   ACTIONS 8842 [sym_identifier]; ACTIONS 1016 [sym_kDefault; sym_kNodefault];
   ACTIONS 11641 [sym_kDispId]; ACTIONS 8842 [sym_kGeneric; sym_kOperator];
   ACTIONS 11643 [sym_kPublic]; ACTIONS 1016 [sym_kStatic; sym_kVirtual; sym_kAbstract;
   sym_kDynamic; sym_kOverride; sym_kOverload; sym_kReintroduce; sym_kStdcall; sym_kCdecl;
   sym_kCppdecl; sym_kPascal; sym_kRegister; sym_kMwpascal]; ACTIONS 11645 [sym_kMessage];
   ACTIONS 11647 [sym_kDeprecated]; ACTIONS 1016 [sym_kExperimental; sym_kPlatform;
   sym_kUnimplemented; sym_kCvar]; ACTIONS 11649 [sym_kExport]; ACTIONS 1016 [sym_kFar;
   sym_kNear; sym_kSafecall; sym_kAssembler; sym_kNostackframe; sym_kInterrupt; sym_kNoreturn;
   sym_kIocheck; sym_kLocal; sym_kHardfloat; sym_kSoftfloat; sym_kMs_abi_default;
   sym_kMs_abi_cdecl; sym_kSaveregisters; sym_kSysv_abi_default; sym_kSysv_abi_cdecl;
   sym_kVectorcall; sym_kVarargs; sym_kWinapi]; ACTIONS 11651 [sym_kAlias];
   ACTIONS 8842 [sym_kBegin; sym_kClass; sym_kConst; sym_kConstructor; sym_kDestructor;
   sym_kExports; sym_kFunction]; ACTIONS 1016 [sym_kInline]; ACTIONS 8842 [sym_kLabel;
   sym_kProcedure; sym_kResourcestring; sym_kThreadvar; sym_kType; sym_kUses; sym_kVar]].

(** State 2568. *)
Definition ts_parse_table_2568 : parse_row :=
  [STATE 2663 [sym__procAttribute]; STATE 15213 [sym_procAttribute];
   STATE 2491 [aux_sym_declProcFwd_repeat1]; ACTIONS 8870 [ts_builtin_sym_end];
   ACTIONS 14711 [anon_sym_LBRACK]; ACTIONS 8870 [aux_sym_ppUsesBlock_token1];
   ACTIONS 3 [sym__space]; ACTIONS 5 [sym_ppDirective]; ACTIONS 3 [sym_comment];
   ACTIONS 8870 [sym_identifier]; ACTIONS 1016 [sym_kDefault; sym_kNodefault];
   ACTIONS 11641 [sym_kDispId]; ACTIONS 8870 [sym_kGeneric; sym_kOperator];
   ACTIONS 11643 [sym_kPublic]; ACTIONS 1016 [sym_kStatic; sym_kVirtual; sym_kAbstract;
   sym_kDynamic; sym_kOverride; sym_kOverload; sym_kReintroduce; sym_kStdcall; sym_kCdecl;
   sym_kCppdecl; sym_kPascal; sym_kRegister; sym_kMwpascal]; ACTIONS 11645 [sym_kMessage];
   ACTIONS 11647 [sym_kDeprecated]; ACTIONS 1016 [sym_kExperimental; sym_kPlatform;
   sym_kUnimplemented; sym_kCvar]; ACTIONS 11649 [sym_kExport]; ACTIONS 1016 [sym_kFar;
   sym_kNear; sym_kSafecall; sym_kAssembler; sym_kNostackframe; sym_kInterrupt; sym_kNoreturn;
   sym_kIocheck; sym_kLocal; sym_kHardfloat; sym_kSoftfloat; sym_kMs_abi_default;
   sym_kMs_abi_cdecl; sym_kSaveregisters; sym_kSysv_abi_default; sym_kSysv_abi_cdecl;
   sym_kVectorcall; sym_kVarargs; sym_kWinapi]; ACTIONS 11651 [sym_kAlias];
   ACTIONS 8870 [sym_kBegin; sym_kClass; sym_kConst; sym_kConstructor; sym_kDestructor;
   sym_kExports; sym_kFunction]; ACTIONS 1016 [sym_kInline]; ACTIONS 8870 [sym_kLabel;
   sym_kProcedure; sym_kResourcestring; sym_kThreadvar; sym_kType; sym_kUses; sym_kVar]].

(** State 2569. *)
Definition ts_parse_table_2569 : parse_row :=
  [ACTIONS 9822 [anon_sym_LBRACK; aux_sym_ppUsesBlock_token1]; ACTIONS 3 [sym__space];
   ACTIONS 5 [sym_ppDirective]; ACTIONS 3 [sym_comment]; ACTIONS 9822 [sym_kDefault;
   sym_kNodefault; sym_kDispId; sym_kGeneric; sym_kOperator; sym_kPublished; sym_kPublic;
   sym_kProtected; sym_kPrivate; sym_kStrict; sym_kRequired; sym_kOptional; sym_kStatic;
   sym_kVirtual; sym_kAbstract; sym_kDynamic; sym_kOverride; sym_kOverload; sym_kReintroduce;
   sym_kStdcall; sym_kCdecl; sym_kCppdecl; sym_kPascal; sym_kRegister; sym_kMwpascal;
   sym_kMessage; sym_kDeprecated; sym_kExperimental; sym_kPlatform; sym_kUnimplemented;
   sym_kCvar; sym_kExport; sym_kFar; sym_kNear; sym_kSafecall; sym_kAssembler; sym_kNostackframe;
   sym_kInterrupt; sym_kNoreturn; sym_kIocheck; sym_kLocal; sym_kHardfloat; sym_kSoftfloat;
   sym_kMs_abi_default; sym_kMs_abi_cdecl; sym_kSaveregisters; sym_kSysv_abi_default;
   sym_kSysv_abi_cdecl; sym_kVectorcall; sym_kVarargs; sym_kWinapi; sym_kAlias; sym_kCase;
   sym_kClass; sym_kConst; sym_kConstructor; sym_kDestructor; sym_kEnd; sym_kFunction;
   sym_kInline; sym_kProcedure; sym_kProperty; sym_kResourcestring; sym_kThreadvar; sym_kType;
   sym_kVar]].

(** State 2570. *)
Definition ts_parse_table_2570 : parse_row :=
  [STATE 2663 [sym__procAttribute]; STATE 15213 [sym_procAttribute];
   STATE 2507 [aux_sym_declProcFwd_repeat1]; ACTIONS 8308 [ts_builtin_sym_end];
   ACTIONS 14714 [anon_sym_LBRACK]; ACTIONS 8308 [aux_sym_ppUsesBlock_token1];
   ACTIONS 3 [sym__space]; ACTIONS 5 [sym_ppDirective]; ACTIONS 3 [sym_comment];
   ACTIONS 8308 [sym_identifier]; ACTIONS 1016 [sym_kDefault; sym_kNodefault];
   ACTIONS 11641 [sym_kDispId]; ACTIONS 8308 [sym_kGeneric; sym_kOperator];
   ACTIONS 11643 [sym_kPublic]; ACTIONS 1016 [sym_kStatic; sym_kVirtual; sym_kAbstract;
   sym_kDynamic; sym_kOverride; sym_kOverload; sym_kReintroduce; sym_kStdcall; sym_kCdecl;
   sym_kCppdecl; sym_kPascal; sym_kRegister; sym_kMwpascal]; ACTIONS 11645 [sym_kMessage];
   ACTIONS 11647 [sym_kDeprecated]; ACTIONS 1016 [sym_kExperimental; sym_kPlatform;
   sym_kUnimplemented; sym_kCvar]; ACTIONS 11649 [sym_kExport]; ACTIONS 1016 [sym_kFar;
   sym_kNear; sym_kSafecall; sym_kAssembler; sym_kNostackframe; sym_kInterrupt; sym_kNoreturn;
   sym_kIocheck; sym_kLocal; sym_kHardfloat; sym_kSoftfloat; sym_kMs_abi_default;
   sym_kMs_abi_cdecl; sym_kSaveregisters; sym_kSysv_abi_default; sym_kSysv_abi_cdecl;
   sym_kVectorcall; sym_kVarargs; sym_kWinapi]; ACTIONS 11651 [sym_kAlias];
   ACTIONS 8308 [sym_kBegin; sym_kClass; sym_kConst; sym_kConstructor; sym_kDestructor;
   sym_kExports; sym_kFunction]; ACTIONS 1016 [sym_kInline]; ACTIONS 8308 [sym_kLabel;
   sym_kProcedure; sym_kResourcestring; sym_kThreadvar; sym_kType; sym_kUses; sym_kVar]].

(** State 2571. *)
Definition ts_parse_table_2571 : parse_row :=
  [STATE 2663 [sym__procAttribute]; STATE 15213 [sym_procAttribute];
   STATE 2578 [aux_sym_declProcFwd_repeat1]; ACTIONS 8336 [ts_builtin_sym_end];
   ACTIONS 14717 [anon_sym_LBRACK]; ACTIONS 8336 [aux_sym_ppUsesBlock_token1];
   ACTIONS 3 [sym__space]; ACTIONS 5 [sym_ppDirective]; ACTIONS 3 [sym_comment];
   ACTIONS 8336 [sym_identifier]; ACTIONS 1016 [sym_kDefault; sym_kNodefault];
   ACTIONS 11641 [sym_kDispId]; ACTIONS 8336 [sym_kGeneric; sym_kOperator];
   ACTIONS 11643 [sym_kPublic]; ACTIONS 1016 [sym_kStatic; sym_kVirtual; sym_kAbstract;
   sym_kDynamic; sym_kOverride; sym_kOverload; sym_kReintroduce; sym_kStdcall; sym_kCdecl;
   sym_kCppdecl; sym_kPascal; sym_kRegister; sym_kMwpascal]; ACTIONS 11645 [sym_kMessage];
   ACTIONS 11647 [sym_kDeprecated]; ACTIONS 1016 [sym_kExperimental; sym_kPlatform;
   sym_kUnimplemented; sym_kCvar]; ACTIONS 11649 [sym_kExport]; ACTIONS 1016 [sym_kFar;
   sym_kNear; sym_kSafecall; sym_kAssembler; sym_kNostackframe; sym_kInterrupt; sym_kNoreturn;
   sym_kIocheck; sym_kLocal; sym_kHardfloat; sym_kSoftfloat; sym_kMs_abi_default;
   sym_kMs_abi_cdecl; sym_kSaveregisters; sym_kSysv_abi_default; sym_kSysv_abi_cdecl;
   sym_kVectorcall; sym_kVarargs; sym_kWinapi]; ACTIONS 11651 [sym_kAlias];
   ACTIONS 8336 [sym_kBegin; sym_kClass; sym_kConst; sym_kConstructor; sym_kDestructor;
   sym_kExports; sym_kFunction]; ACTIONS 1016 [sym_kInline]; ACTIONS 8336 [sym_kLabel;
   sym_kProcedure; sym_kResourcestring; sym_kThreadvar; sym_kType; sym_kUses; sym_kVar]].

(** State 2572. *)
Definition ts_parse_table_2572 : parse_row :=
  [ACTIONS 10932 [anon_sym_LBRACK; aux_sym_ppUsesBlock_token1]; ACTIONS 3 [sym__space];
   ACTIONS 5 [sym_ppDirective]; ACTIONS 3 [sym_comment]; ACTIONS 10932 [sym_identifier;
   sym_kDefault; sym_kNodefault; sym_kDispId; sym_kGeneric; sym_kOperator; sym_kPublished;
   sym_kPublic; sym_kProtected; sym_kPrivate; sym_kStrict; sym_kRequired; sym_kOptional;
   sym_kStatic; sym_kVirtual; sym_kAbstract; sym_kDynamic; sym_kOverride; sym_kOverload;
   sym_kReintroduce; sym_kStdcall; sym_kCdecl; sym_kCppdecl; sym_kPascal; sym_kRegister;
   sym_kMwpascal; sym_kMessage; sym_kDeprecated; sym_kExperimental; sym_kPlatform;
   sym_kUnimplemented; sym_kCvar; sym_kExport; sym_kFar; sym_kNear; sym_kSafecall;
   sym_kAssembler; sym_kNostackframe; sym_kInterrupt; sym_kNoreturn; sym_kIocheck; sym_kLocal;
   sym_kHardfloat; sym_kSoftfloat; sym_kMs_abi_default; sym_kMs_abi_cdecl; sym_kSaveregisters;
   sym_kSysv_abi_default; sym_kSysv_abi_cdecl; sym_kVectorcall; sym_kVarargs; sym_kWinapi;
   sym_kAlias; sym_kCase; sym_kClass; sym_kConst; sym_kConstructor; sym_kDestructor; sym_kEnd;
   sym_kFunction; sym_kProcedure; sym_kProperty; sym_kResourcestring; sym_kThreadvar; sym_kType;
   sym_kVar]].

(** State 2573. *)
Definition ts_parse_table_2573 : parse_row :=
  [ACTIONS 10622 [anon_sym_LBRACK; aux_sym_ppUsesBlock_token1]; ACTIONS 3 [sym__space];
   ACTIONS 5 [sym_ppDirective]; ACTIONS 3 [sym_comment]; ACTIONS 10622 [sym_kDefault;
   sym_kNodefault; sym_kDispId; sym_kGeneric; sym_kOperator; sym_kPublic; sym_kStatic;
   sym_kVirtual; sym_kAbstract; sym_kDynamic; sym_kOverride; sym_kOverload; sym_kReintroduce;
   sym_kStdcall; sym_kCdecl; sym_kCppdecl; sym_kPascal; sym_kRegister; sym_kMwpascal;
   sym_kMessage; sym_kDeprecated; sym_kExperimental; sym_kPlatform; sym_kUnimplemented;
   sym_kCvar; sym_kExport; sym_kFar; sym_kNear; sym_kSafecall; sym_kAssembler; sym_kNostackframe;
   sym_kInterrupt; sym_kNoreturn; sym_kIocheck; sym_kLocal; sym_kHardfloat; sym_kSoftfloat;
   sym_kMs_abi_default; sym_kMs_abi_cdecl; sym_kSaveregisters; sym_kSysv_abi_default;
   sym_kSysv_abi_cdecl; sym_kVectorcall; sym_kVarargs; sym_kWinapi; sym_kAlias; sym_kBegin;
   sym_kClass; sym_kConst; sym_kConstructor; sym_kDestructor; sym_kEnd; sym_kExports;
   sym_kFinalization; sym_kFunction; sym_kImplementation; sym_kInitialization; sym_kInline;
   sym_kInterface; sym_kLabel; sym_kProcedure; sym_kResourcestring; sym_kThreadvar; sym_kType;
   sym_kUses; sym_kVar]].

(** State 2574. *)
Definition ts_parse_table_2574 : parse_row :=
  [ACTIONS 9858 [anon_sym_LBRACK; aux_sym_ppUsesBlock_token1]; ACTIONS 3 [sym__space];
   ACTIONS 5 [sym_ppDirective]; ACTIONS 3 [sym_comment]; ACTIONS 9858 [sym_kDefault;
   sym_kNodefault; sym_kDispId; sym_kGeneric; sym_kOperator; sym_kPublished; sym_kPublic;
   sym_kProtected; sym_kPrivate; sym_kStrict; sym_kRequired; sym_kOptional; sym_kStatic;
   sym_kVirtual; sym_kAbstract; sym_kDynamic; sym_kOverride; sym_kOverload; sym_kReintroduce;
   sym_kStdcall; sym_kCdecl; sym_kCppdecl; sym_kPascal; sym_kRegister; sym_kMwpascal;
   sym_kMessage; sym_kDeprecated; sym_kExperimental; sym_kPlatform; sym_kUnimplemented;
   sym_kCvar; sym_kExport; sym_kFar; sym_kNear; sym_kSafecall; sym_kAssembler; sym_kNostackframe;
   sym_kInterrupt; sym_kNoreturn; sym_kIocheck; sym_kLocal; sym_kHardfloat; sym_kSoftfloat;
   sym_kMs_abi_default; sym_kMs_abi_cdecl; sym_kSaveregisters; sym_kSysv_abi_default;
   sym_kSysv_abi_cdecl; sym_kVectorcall; sym_kVarargs; sym_kWinapi; sym_kAlias; sym_kCase;
   sym_kClass; sym_kConst; sym_kConstructor; sym_kDestructor; sym_kEnd; sym_kFunction;
   sym_kInline; sym_kProcedure; sym_kProperty; sym_kResourcestring; sym_kThreadvar; sym_kType;
   sym_kVar]].

(** State 2575. *)
Definition ts_parse_table_2575 : parse_row :=
  [STATE 2663 [sym__procAttribute]; STATE 15213 [sym_procAttribute];
   STATE 2507 [aux_sym_declProcFwd_repeat1]; ACTIONS 8476 [ts_builtin_sym_end];
   ACTIONS 14720 [anon_sym_LBRACK]; ACTIONS 8476 [aux_sym_ppUsesBlock_token1];
   ACTIONS 3 [sym__space]; ACTIONS 5 [sym_ppDirective]; ACTIONS 3 [sym_comment];
   ACTIONS 8476 [sym_identifier]; ACTIONS 1016 [sym_kDefault; sym_kNodefault];
   ACTIONS 11641 [sym_kDispId]; ACTIONS 8476 [sym_kGeneric; sym_kOperator];
   ACTIONS 11643 [sym_kPublic]; ACTIONS 1016 [sym_kStatic; sym_kVirtual; sym_kAbstract;
   sym_kDynamic; sym_kOverride; sym_kOverload; sym_kReintroduce; sym_kStdcall; sym_kCdecl;
   sym_kCppdecl; sym_kPascal; sym_kRegister; sym_kMwpascal]; ACTIONS 11645 [sym_kMessage];
   ACTIONS 11647 [sym_kDeprecated]; ACTIONS 1016 [sym_kExperimental; sym_kPlatform;
   sym_kUnimplemented; sym_kCvar]; ACTIONS 11649 [sym_kExport]; ACTIONS 1016 [sym_kFar;
   sym_kNear; sym_kSafecall; sym_kAssembler; sym_kNostackframe; sym_kInterrupt; sym_kNoreturn;
   sym_kIocheck; sym_kLocal; sym_kHardfloat; sym_kSoftfloat; sym_kMs_abi_default;
   sym_kMs_abi_cdecl; sym_kSaveregisters; sym_kSysv_abi_default; sym_kSysv_abi_cdecl;
   sym_kVectorcall; sym_kVarargs; sym_kWinapi]; ACTIONS 11651 [sym_kAlias];
   ACTIONS 8476 [sym_kBegin; sym_kClass; sym_kConst; sym_kConstructor; sym_kDestructor;
   sym_kExports; sym_kFunction]; ACTIONS 1016 [sym_kInline]; ACTIONS 8476 [sym_kLabel;
   sym_kProcedure; sym_kResourcestring; sym_kThreadvar; sym_kType; sym_kUses; sym_kVar]].

(** State 2576. *)
Definition ts_parse_table_2576 : parse_row :=
  [STATE 2663 [sym__procAttribute]; STATE 15213 [sym_procAttribute];
   STATE 2538 [aux_sym_declProcFwd_repeat1]; ACTIONS 8926 [ts_builtin_sym_end];
   ACTIONS 14723 [anon_sym_LBRACK]; ACTIONS 8926 [aux_sym_ppUsesBlock_token1];
   ACTIONS 3 [sym__space]; ACTIONS 5 [sym_ppDirective]; ACTIONS 3 [sym_comment];
   ACTIONS 8926 [sym_identifier]; ACTIONS 1016 [sym_kDefault; sym_kNodefault];
   ACTIONS 11641 [sym_kDispId]; ACTIONS 8926 [sym_kGeneric; sym_kOperator];
   ACTIONS 11643 [sym_kPublic]; ACTIONS 1016 [sym_kStatic; sym_kVirtual; sym_kAbstract;
   sym_kDynamic; sym_kOverride; sym_kOverload; sym_kReintroduce; sym_kStdcall; sym_kCdecl;
   sym_kCppdecl; sym_kPascal; sym_kRegister; sym_kMwpascal]; ACTIONS 11645 [sym_kMessage];
   ACTIONS 11647 [sym_kDeprecated]; ACTIONS 1016 [sym_kExperimental; sym_kPlatform;
   sym_kUnimplemented; sym_kCvar]; ACTIONS 11649 [sym_kExport]; ACTIONS 1016 [sym_kFar;
   sym_kNear; sym_kSafecall; sym_kAssembler; sym_kNostackframe; sym_kInterrupt; sym_kNoreturn;
   sym_kIocheck; sym_kLocal; sym_kHardfloat; sym_kSoftfloat; sym_kMs_abi_default;
   sym_kMs_abi_cdecl; sym_kSaveregisters; sym_kSysv_abi_default; sym_kSysv_abi_cdecl;
   sym_kVectorcall; sym_kVarargs; sym_kWinapi]; ACTIONS 11651 [sym_kAlias];
   ACTIONS 8926 [sym_kBegin; sym_kClass; sym_kConst; sym_kConstructor; sym_kDestructor;
   sym_kExports; sym_kFunction]; ACTIONS 1016 [sym_kInline]; ACTIONS 8926 [sym_kLabel;
   sym_kProcedure; sym_kResourcestring; sym_kThreadvar; sym_kType; sym_kUses; sym_kVar]].

(** State 2577. *)
Definition ts_parse_table_2577 : parse_row :=
  [STATE 2663 [sym__procAttribute]; STATE 15213 [sym_procAttribute];
   STATE 2510 [aux_sym_declProcFwd_repeat1]; ACTIONS 8504 [ts_builtin_sym_end];
   ACTIONS 14726 [anon_sym_LBRACK]; ACTIONS 8504 [aux_sym_ppUsesBlock_token1];
   ACTIONS 3 [sym__space]; ACTIONS 5 [sym_ppDirective]; ACTIONS 3 [sym_comment];
   ACTIONS 8504 [sym_identifier]; ACTIONS 1016 [sym_kDefault; sym_kNodefault];
   ACTIONS 11641 [sym_kDispId]; ACTIONS 8504 [sym_kGeneric; sym_kOperator];
   ACTIONS 11643 [sym_kPublic]; ACTIONS 1016 [sym_kStatic; sym_kVirtual; sym_kAbstract;
   sym_kDynamic; sym_kOverride; sym_kOverload; sym_kReintroduce; sym_kStdcall; sym_kCdecl;
   sym_kCppdecl; sym_kPascal; sym_kRegister; sym_kMwpascal]; ACTIONS 11645 [sym_kMessage];
   ACTIONS 11647 [sym_kDeprecated]; ACTIONS 1016 [sym_kExperimental; sym_kPlatform;
   sym_kUnimplemented; sym_kCvar]; ACTIONS 11649 [sym_kExport]; ACTIONS 1016 [sym_kFar;
   sym_kNear; sym_kSafecall; sym_kAssembler; sym_kNostackframe; sym_kInterrupt; sym_kNoreturn;
   sym_kIocheck; sym_kLocal; sym_kHardfloat; sym_kSoftfloat; sym_kMs_abi_default;
   sym_kMs_abi_cdecl; sym_kSaveregisters; sym_kSysv_abi_default; sym_kSysv_abi_cdecl;
   sym_kVectorcall; sym_kVarargs; sym_kWinapi]; ACTIONS 11651 [sym_kAlias];
   ACTIONS 8504 [sym_kBegin; sym_kClass; sym_kConst; sym_kConstructor; sym_kDestructor;
   sym_kExports; sym_kFunction]; ACTIONS 1016 [sym_kInline]; ACTIONS 8504 [sym_kLabel;
   sym_kProcedure; sym_kResourcestring; sym_kThreadvar; sym_kType; sym_kUses; sym_kVar]].

(** State 2578. *)
Definition ts_parse_table_2578 : parse_row :=
  [STATE 2663 [sym__procAttribute]; STATE 15213 [sym_procAttribute];
   STATE 2507 [aux_sym_declProcFwd_repeat1]; ACTIONS 8532 [ts_builtin_sym_end];
   ACTIONS 14729 [anon_sym_LBRACK]; ACTIONS 8532 [aux_sym_ppUsesBlock_token1];
   ACTIONS 3 [sym__space]; ACTIONS 5 [sym_ppDirective]; ACTIONS 3 [sym_comment];
   ACTIONS 8532 [sym_identifier]; ACTIONS 1016 [sym_kDefault; sym_kNodefault];
   ACTIONS 11641 [sym_kDispId]; ACTIONS 8532 [sym_kGeneric; sym_kOperator];
   ACTIONS 11643 [sym_kPublic]; ACTIONS 1016 [sym_kStatic; sym_kVirtual; sym_kAbstract;
   sym_kDynamic; sym_kOverride; sym_kOverload; sym_kReintroduce; sym_kStdcall; sym_kCdecl;
   sym_kCppdecl; sym_kPascal; sym_kRegister; sym_kMwpascal]; ACTIONS 11645 [sym_kMessage];
   ACTIONS 11647 [sym_kDeprecated]; ACTIONS 1016 [sym_kExperimental; sym_kPlatform;
   sym_kUnimplemented; sym_kCvar]; ACTIONS 11649 [sym_kExport]; ACTIONS 1016 [sym_kFar;
   sym_kNear; sym_kSafecall; sym_kAssembler; sym_kNostackframe; sym_kInterrupt; sym_kNoreturn;
   sym_kIocheck; sym_kLocal; sym_kHardfloat; sym_kSoftfloat; sym_kMs_abi_default;
   sym_kMs_abi_cdecl; sym_kSaveregisters; sym_kSysv_abi_default; sym_kSysv_abi_cdecl;
   sym_kVectorcall; sym_kVarargs; sym_kWinapi]; ACTIONS 11651 [sym_kAlias];
   ACTIONS 8532 [sym_kBegin; sym_kClass; sym_kConst; sym_kConstructor; sym_kDestructor;
   sym_kExports; sym_kFunction]; ACTIONS 1016 [sym_kInline]; ACTIONS 8532 [sym_kLabel;
   sym_kProcedure; sym_kResourcestring; sym_kThreadvar; sym_kType; sym_kUses; sym_kVar]].

(** State 2579. *)
Definition ts_parse_table_2579 : parse_row :=
  [STATE 2670 [sym__procAttribute]; STATE 15598 [sym_procAttribute];
   STATE 2595 [aux_sym_declProcFwd_repeat1]; ACTIONS 14732 [anon_sym_LBRACK];
   ACTIONS 8448 [aux_sym_ppUsesBlock_token1]; ACTIONS 3 [sym__space];
   ACTIONS 5 [sym_ppDirective]; ACTIONS 3 [sym_comment]; ACTIONS 8448 [sym_identifier];
   ACTIONS 1016 [sym_kDefault; sym_kNodefault]; ACTIONS 11641 [sym_kDispId];
   ACTIONS 8448 [sym_kGeneric; sym_kOperator]; ACTIONS 11643 [sym_kPublic];
   ACTIONS 1016 [sym_kStatic; sym_kVirtual; sym_kAbstract; sym_kDynamic; sym_kOverride;
   sym_kOverload; sym_kReintroduce; sym_kStdcall; sym_kCdecl; sym_kCppdecl; sym_kPascal;
   sym_kRegister; sym_kMwpascal]; ACTIONS 11645 [sym_kMessage]; ACTIONS 11647 [sym_kDeprecated];
   ACTIONS 1016 [sym_kExperimental; sym_kPlatform; sym_kUnimplemented; sym_kCvar];
   ACTIONS 11649 [sym_kExport]; ACTIONS 1016 [sym_kFar; sym_kNear; sym_kSafecall; sym_kAssembler;
   sym_kNostackframe; sym_kInterrupt; sym_kNoreturn; sym_kIocheck; sym_kLocal; sym_kHardfloat;
   sym_kSoftfloat; sym_kMs_abi_default; sym_kMs_abi_cdecl; sym_kSaveregisters;
   sym_kSysv_abi_default; sym_kSysv_abi_cdecl; sym_kVectorcall; sym_kVarargs; sym_kWinapi];
   ACTIONS 11651 [sym_kAlias]; ACTIONS 8448 [sym_kAsm; sym_kBegin; sym_kClass; sym_kConst;
   sym_kConstructor; sym_kDestructor; sym_kExports; sym_kFunction]; ACTIONS 1016 [sym_kInline];
   ACTIONS 8448 [sym_kLabel; sym_kProcedure; sym_kResourcestring; sym_kThreadvar; sym_kType;
   sym_kUses; sym_kVar]].

(** State 2580. *)
Definition ts_parse_table_2580 : parse_row :=
  [ACTIONS 9810 [anon_sym_LBRACK; aux_sym_ppUsesBlock_token1]; ACTIONS 3 [sym__space];
   ACTIONS 5 [sym_ppDirective]; ACTIONS 3 [sym_comment]; ACTIONS 9810 [sym_identifier;
   sym_kDefault; sym_kNodefault; sym_kDispId; sym_kGeneric; sym_kOperator; sym_kPublic;
   sym_kStatic; sym_kVirtual; sym_kAbstract; sym_kDynamic; sym_kOverride; sym_kOverload;
   sym_kReintroduce; sym_kStdcall; sym_kCdecl; sym_kCppdecl; sym_kPascal; sym_kRegister;
   sym_kMwpascal; sym_kMessage; sym_kDeprecated; sym_kExperimental; sym_kPlatform;
   sym_kUnimplemented; sym_kCvar; sym_kExport; sym_kFar; sym_kNear; sym_kSafecall;
   sym_kAssembler; sym_kNostackframe; sym_kInterrupt; sym_kNoreturn; sym_kIocheck; sym_kLocal;
   sym_kHardfloat; sym_kSoftfloat; sym_kMs_abi_default; sym_kMs_abi_cdecl; sym_kSaveregisters;
   sym_kSysv_abi_default; sym_kSysv_abi_cdecl; sym_kVectorcall; sym_kVarargs; sym_kWinapi;
   sym_kAlias; sym_kBegin; sym_kClass; sym_kConst; sym_kConstructor; sym_kDestructor; sym_kEnd;
   sym_kExports; sym_kFinalization; sym_kFunction; sym_kImplementation; sym_kInitialization;
   sym_kInterface; sym_kLabel; sym_kProcedure; sym_kResourcestring; sym_kThreadvar; sym_kType;
   sym_kUses; sym_kVar]].

(** State 2581. *)
Definition ts_parse_table_2581 : parse_row :=
  [ACTIONS 9810 [anon_sym_LBRACK; aux_sym_ppUsesBlock_token1]; ACTIONS 3 [sym__space];
   ACTIONS 5 [sym_ppDirective]; ACTIONS 3 [sym_comment]; ACTIONS 9810 [sym_identifier;
   sym_kDefault; sym_kNodefault; sym_kDispId; sym_kGeneric; sym_kOperator; sym_kPublic;
   sym_kStatic; sym_kVirtual; sym_kAbstract; sym_kDynamic; sym_kOverride; sym_kOverload;
   sym_kReintroduce; sym_kStdcall; sym_kCdecl; sym_kCppdecl; sym_kPascal; sym_kRegister;
   sym_kMwpascal; sym_kMessage; sym_kDeprecated; sym_kExperimental; sym_kPlatform;
   sym_kUnimplemented; sym_kCvar; sym_kExport; sym_kFar; sym_kNear; sym_kSafecall;
   sym_kAssembler; sym_kNostackframe; sym_kInterrupt; sym_kNoreturn; sym_kIocheck; sym_kLocal;
   sym_kHardfloat; sym_kSoftfloat; sym_kMs_abi_default; sym_kMs_abi_cdecl; sym_kSaveregisters;
   sym_kSysv_abi_default; sym_kSysv_abi_cdecl; sym_kVectorcall; sym_kVarargs; sym_kWinapi;
   sym_kAlias; sym_kClass; sym_kConst; sym_kConstructor; sym_kDestructor; sym_kEnd; sym_kExports;
   sym_kFinalization; sym_kFunction; sym_kImplementation; sym_kInitialization; sym_kInterface;
   sym_kLabel; sym_kProcedure; sym_kProperty; sym_kResourcestring; sym_kThreadvar; sym_kType;
   sym_kUses; sym_kVar]].

(** State 2582. *)
Definition ts_parse_table_2582 : parse_row :=
  [ACTIONS 9810 [anon_sym_LBRACK; aux_sym_ppUsesBlock_token1]; ACTIONS 3 [sym__space];
   ACTIONS 5 [sym_ppDirective]; ACTIONS 3 [sym_comment]; ACTIONS 9810 [sym_kDefault;
   sym_kNodefault; sym_kDispId; sym_kGeneric; sym_kOperator; sym_kPublished; sym_kPublic;
   sym_kProtected; sym_kPrivate; sym_kStrict; sym_kRequired; sym_kOptional; sym_kStatic;
   sym_kVirtual; sym_kAbstract; sym_kDynamic; sym_kOverride; sym_kOverload; sym_kReintroduce;
   sym_kStdcall; sym_kCdecl; sym_kCppdecl; sym_kPascal; sym_kRegister; sym_kMwpascal;
   sym_kMessage; sym_kDeprecated; sym_kExperimental; sym_kPlatform; sym_kUnimplemented;
   sym_kCvar; sym_kExport; sym_kFar; sym_kNear; sym_kSafecall; sym_kAssembler; sym_kNostackframe;
   sym_kInterrupt; sym_kNoreturn; sym_kIocheck; sym_kLocal; sym_kHardfloat; sym_kSoftfloat;
   sym_kMs_abi_default; sym_kMs_abi_cdecl; sym_kSaveregisters; sym_kSysv_abi_default;
   sym_kSysv_abi_cdecl; sym_kVectorcall; sym_kVarargs; sym_kWinapi; sym_kAlias; sym_kCase;
   sym_kClass; sym_kConst; sym_kConstructor; sym_kDestructor; sym_kEnd; sym_kFunction;
   sym_kInline; sym_kProcedure; sym_kProperty; sym_kResourcestring; sym_kThreadvar; sym_kType;
   sym_kVar]].

(** State 2583. *)
Definition ts_parse_table_2583 : parse_row :=
  [STATE 4088 [sym__expr; sym_exprConditional]; STATE 3466 [sym__ref; sym_lambda; sym_inherited;
   sym_exprDot; sym_exprDeref; sym_exprAs; sym_exprTpl; sym_exprSubscript; sym_exprCall];
   STATE 4088 [sym_exprBinary; sym_exprUnary]; STATE 3466 [sym_exprParens; sym_exprBrackets;
   sym__literal; sym_literalString]; STATE 2833 [sym__literalString; sym_literalChar];
   STATE 3466 [sym_literalNumber]; STATE 3618 [sym__literalInt; sym__literalFloat];
   STATE 2833 [aux_sym_literalString_repeat1]; ACTIONS 14735 [anon_sym_LBRACK];
   ACTIONS 14737 [anon_sym_LPAREN]; ACTIONS 14739 [aux_sym__literalString_token1];
   ACTIONS 14741 [anon_sym_POUND]; ACTIONS 14743 [aux_sym__literalInt_token1];
   ACTIONS 14745 [aux_sym__literalInt_token2; aux_sym__literalInt_token3];
   ACTIONS 14743 [aux_sym__literalFloat_token1]; ACTIONS 14747 [aux_sym_ppUsesBlock_token1];
   ACTIONS 14749 [sym_kAdd; sym_kSub]; ACTIONS 14751 [sym_kAt]; ACTIONS 14753 [sym_kTrue;
   sym_kFalse]; ACTIONS 3 [sym__space]; ACTIONS 5 [sym_ppDirective]; ACTIONS 3 [sym_comment];
   ACTIONS 14753 [sym_ppFragmentExpr]; ACTIONS 14739 [sym__literalStringMultiline];
   ACTIONS 14753 [sym_identifier]; ACTIONS 14747 [sym_kGeneric]; ACTIONS 14755 [sym_kSpecialize];
   ACTIONS 14747 [sym_kOperator; sym_kPublished; sym_kPublic; sym_kProtected; sym_kPrivate;
   sym_kStrict; sym_kRequired; sym_kOptional; sym_kCase; sym_kClass; sym_kConst;
   sym_kConstructor; sym_kDestructor; sym_kEnd]; ACTIONS 14757 [sym_kFunction];
   ACTIONS 14759 [sym_kIf]; ACTIONS 14761 [sym_kInherited]; ACTIONS 14753 [sym_kNil];
   ACTIONS 14751 [sym_kNot]; ACTIONS 14757 [sym_kProcedure]; ACTIONS 14747 [sym_kProperty;
   sym_kResourcestring]; ACTIONS 14763 [sym_kString]; ACTIONS 14747 [sym_kThreadvar; sym_kType;
   sym_kVar]].

(** State 2584. *)
Definition ts_parse_table_2584 : parse_row :=
  [ACTIONS 9810 [anon_sym_LBRACK; aux_sym_ppUsesBlock_token1]; ACTIONS 3 [sym__space];
   ACTIONS 5 [sym_ppDirective]; ACTIONS 3 [sym_comment]; ACTIONS 9810 [sym_kDefault;
   sym_kNodefault; sym_kDispId; sym_kGeneric; sym_kOperator; sym_kPublic; sym_kStatic;
   sym_kVirtual; sym_kAbstract; sym_kDynamic; sym_kOverride; sym_kOverload; sym_kReintroduce;
   sym_kStdcall; sym_kCdecl; sym_kCppdecl; sym_kPascal; sym_kRegister; sym_kMwpascal;
   sym_kMessage; sym_kDeprecated; sym_kExperimental; sym_kPlatform; sym_kUnimplemented;
   sym_kCvar; sym_kExport; sym_kFar; sym_kNear; sym_kSafecall; sym_kAssembler; sym_kNostackframe;
   sym_kInterrupt; sym_kNoreturn; sym_kIocheck; sym_kLocal; sym_kHardfloat; sym_kSoftfloat;
   sym_kMs_abi_default; sym_kMs_abi_cdecl; sym_kSaveregisters; sym_kSysv_abi_default;
   sym_kSysv_abi_cdecl; sym_kVectorcall; sym_kVarargs; sym_kWinapi; sym_kAlias; sym_kClass;
   sym_kConst; sym_kConstructor; sym_kDestructor; sym_kEnd; sym_kExports; sym_kFinalization;
   sym_kFunction; sym_kImplementation; sym_kInitialization; sym_kInline; sym_kInterface;
   sym_kLabel; sym_kProcedure; sym_kProperty; sym_kResourcestring; sym_kThreadvar; sym_kType;
   sym_kUses; sym_kVar]].

(** State 2585. *)
Definition ts_parse_table_2585 : parse_row :=
  [STATE 4089 [sym__expr; sym_exprConditional]; STATE 3466 [sym__ref; sym_lambda; sym_inherited;
   sym_exprDot; sym_exprDeref; sym_exprAs; sym_exprTpl; sym_exprSubscript; sym_exprCall];
   STATE 4089 [sym_exprBinary; sym_exprUnary]; STATE 3466 [sym_exprParens; sym_exprBrackets;
   sym__literal; sym_literalString]; STATE 2833 [sym__literalString; sym_literalChar];
   STATE 3466 [sym_literalNumber]; STATE 3618 [sym__literalInt; sym__literalFloat];
   STATE 2833 [aux_sym_literalString_repeat1]; ACTIONS 14735 [anon_sym_LBRACK];
   ACTIONS 14737 [anon_sym_LPAREN]; ACTIONS 14739 [aux_sym__literalString_token1];
   ACTIONS 14741 [anon_sym_POUND]; ACTIONS 14743 [aux_sym__literalInt_token1];
   ACTIONS 14745 [aux_sym__literalInt_token2; aux_sym__literalInt_token3];
   ACTIONS 14743 [aux_sym__literalFloat_token1]; ACTIONS 14765 [aux_sym_ppUsesBlock_token1];
   ACTIONS 14749 [sym_kAdd; sym_kSub]; ACTIONS 14751 [sym_kAt]; ACTIONS 14753 [sym_kTrue;
   sym_kFalse]; ACTIONS 3 [sym__space]; ACTIONS 5 [sym_ppDirective]; ACTIONS 3 [sym_comment];
   ACTIONS 14753 [sym_ppFragmentExpr]; ACTIONS 14739 [sym__literalStringMultiline];
   ACTIONS 14753 [sym_identifier]; ACTIONS 14765 [sym_kGeneric]; ACTIONS 14755 [sym_kSpecialize];
   ACTIONS 14765 [sym_kOperator; sym_kPublished; sym_kPublic; sym_kProtected; sym_kPrivate;
   sym_kStrict; sym_kRequired; sym_kOptional; sym_kCase; sym_kClass; sym_kConst;
   sym_kConstructor; sym_kDestructor; sym_kEnd]; ACTIONS 14757 [sym_kFunction];
   ACTIONS 14759 [sym_kIf]; ACTIONS 14761 [sym_kInherited]; ACTIONS 14753 [sym_kNil];
   ACTIONS 14751 [sym_kNot]; ACTIONS 14757 [sym_kProcedure]; ACTIONS 14765 [sym_kProperty;
   sym_kResourcestring]; ACTIONS 14763 [sym_kString]; ACTIONS 14765 [sym_kThreadvar; sym_kType;
   sym_kVar]].

(** State 2586. *)
Definition ts_parse_table_2586 : parse_row :=
  [ACTIONS 11005 [anon_sym_LBRACK; aux_sym_ppUsesBlock_token1]; ACTIONS 3 [sym__space];
   ACTIONS 5 [sym_ppDirective]; ACTIONS 3 [sym_comment]; ACTIONS 11005 [sym_identifier;
   sym_kDefault; sym_kNodefault; sym_kDispId; sym_kGeneric; sym_kOperator; sym_kPublic;
   sym_kStatic; sym_kVirtual; sym_kAbstract; sym_kDynamic; sym_kOverride; sym_kOverload;
   sym_kReintroduce; sym_kStdcall; sym_kCdecl; sym_kCppdecl; sym_kPascal; sym_kRegister;
   sym_kMwpascal; sym_kMessage; sym_kDeprecated; sym_kExperimental; sym_kPlatform;
   sym_kUnimplemented; sym_kCvar; sym_kExport; sym_kFar; sym_kNear; sym_kSafecall;
   sym_kAssembler; sym_kNostackframe; sym_kInterrupt; sym_kNoreturn; sym_kIocheck; sym_kLocal;
   sym_kHardfloat; sym_kSoftfloat; sym_kMs_abi_default; sym_kMs_abi_cdecl; sym_kSaveregisters;
   sym_kSysv_abi_default; sym_kSysv_abi_cdecl; sym_kVectorcall; sym_kVarargs; sym_kWinapi;
   sym_kAlias; sym_kBegin; sym_kClass; sym_kConst; sym_kConstructor; sym_kDestructor; sym_kEnd;
   sym_kExports; sym_kFinalization; sym_kFunction; sym_kImplementation; sym_kInitialization;
   sym_kInterface; sym_kLabel; sym_kProcedure; sym_kResourcestring; sym_kThreadvar; sym_kType;
   sym_kUses; sym_kVar]].

(** State 2587. *)
Definition ts_parse_table_2587 : parse_row :=
  [ACTIONS 11049 [anon_sym_LBRACK; aux_sym_ppUsesBlock_token1]; ACTIONS 3 [sym__space];
   ACTIONS 5 [sym_ppDirective]; ACTIONS 3 [sym_comment]; ACTIONS 11049 [sym_identifier;
   sym_kDefault; sym_kNodefault; sym_kDispId; sym_kGeneric; sym_kOperator; sym_kPublic;
   sym_kStatic; sym_kVirtual; sym_kAbstract; sym_kDynamic; sym_kOverride; sym_kOverload;
   sym_kReintroduce; sym_kStdcall; sym_kCdecl; sym_kCppdecl; sym_kPascal; sym_kRegister;
   sym_kMwpascal; sym_kMessage; sym_kDeprecated; sym_kExperimental; sym_kPlatform;
   sym_kUnimplemented; sym_kCvar; sym_kExport; sym_kFar; sym_kNear; sym_kSafecall;
   sym_kAssembler; sym_kNostackframe; sym_kInterrupt; sym_kNoreturn; sym_kIocheck; sym_kLocal;
   sym_kHardfloat; sym_kSoftfloat; sym_kMs_abi_default; sym_kMs_abi_cdecl; sym_kSaveregisters;
   sym_kSysv_abi_default; sym_kSysv_abi_cdecl; sym_kVectorcall; sym_kVarargs; sym_kWinapi;
   sym_kAlias; sym_kBegin; sym_kClass; sym_kConst; sym_kConstructor; sym_kDestructor; sym_kEnd;
   sym_kExports; sym_kFinalization; sym_kFunction; sym_kImplementation; sym_kInitialization;
   sym_kInterface; sym_kLabel; sym_kProcedure; sym_kResourcestring; sym_kThreadvar; sym_kType;
   sym_kUses; sym_kVar]].

(** State 2588. *)
Definition ts_parse_table_2588 : parse_row :=
  [ACTIONS 10932 [anon_sym_LBRACK; aux_sym_ppUsesBlock_token1]; ACTIONS 3 [sym__space];
   ACTIONS 5 [sym_ppDirective]; ACTIONS 3 [sym_comment]; ACTIONS 10932 [sym_identifier;
   sym_kDefault; sym_kNodefault; sym_kDispId; sym_kGeneric; sym_kOperator; sym_kPublic;
   sym_kStatic; sym_kVirtual; sym_kAbstract; sym_kDynamic; sym_kOverride; sym_kOverload;
   sym_kReintroduce; sym_kStdcall; sym_kCdecl; sym_kCppdecl; sym_kPascal; sym_kRegister;
   sym_kMwpascal; sym_kMessage; sym_kDeprecated; sym_kExperimental; sym_kPlatform;
   sym_kUnimplemented; sym_kCvar; sym_kExport; sym_kFar; sym_kNear; sym_kSafecall;
   sym_kAssembler; sym_kNostackframe; sym_kInterrupt; sym_kNoreturn; sym_kIocheck; sym_kLocal;
   sym_kHardfloat; sym_kSoftfloat; sym_kMs_abi_default; sym_kMs_abi_cdecl; sym_kSaveregisters;
   sym_kSysv_abi_default; sym_kSysv_abi_cdecl; sym_kVectorcall; sym_kVarargs; sym_kWinapi;
   sym_kAlias; sym_kBegin; sym_kClass; sym_kConst; sym_kConstructor; sym_kDestructor; sym_kEnd;
   sym_kExports; sym_kFinalization; sym_kFunction; sym_kImplementation; sym_kInitialization;
   sym_kInterface; sym_kLabel; sym_kProcedure; sym_kResourcestring; sym_kThreadvar; sym_kType;
   sym_kUses; sym_kVar]].

(** State 2589. *)
Definition ts_parse_table_2589 : parse_row :=
  [ACTIONS 10932 [anon_sym_LBRACK; aux_sym_ppUsesBlock_token1]; ACTIONS 3 [sym__space];
   ACTIONS 5 [sym_ppDirective]; ACTIONS 3 [sym_comment]; ACTIONS 10932 [sym_identifier;
   sym_kDefault; sym_kNodefault; sym_kDispId; sym_kGeneric; sym_kOperator; sym_kPublic;
   sym_kStatic; sym_kVirtual; sym_kAbstract; sym_kDynamic; sym_kOverride; sym_kOverload;
   sym_kReintroduce; sym_kStdcall; sym_kCdecl; sym_kCppdecl; sym_kPascal; sym_kRegister;
   sym_kMwpascal; sym_kMessage; sym_kDeprecated; sym_kExperimental; sym_kPlatform;
   sym_kUnimplemented; sym_kCvar; sym_kExport; sym_kFar; sym_kNear; sym_kSafecall;
   sym_kAssembler; sym_kNostackframe; sym_kInterrupt; sym_kNoreturn; sym_kIocheck; sym_kLocal;
   sym_kHardfloat; sym_kSoftfloat; sym_kMs_abi_default; sym_kMs_abi_cdecl; sym_kSaveregisters;
   sym_kSysv_abi_default; sym_kSysv_abi_cdecl; sym_kVectorcall; sym_kVarargs; sym_kWinapi;
   sym_kAlias; sym_kClass; sym_kConst; sym_kConstructor; sym_kDestructor; sym_kEnd; sym_kExports;
   sym_kFinalization; sym_kFunction; sym_kImplementation; sym_kInitialization; sym_kInterface;
   sym_kLabel; sym_kProcedure; sym_kProperty; sym_kResourcestring; sym_kThreadvar; sym_kType;
   sym_kUses; sym_kVar]].

(** State 2590. *)
Definition ts_parse_table_2590 : parse_row :=
  [ACTIONS 9868 [anon_sym_LBRACK; aux_sym_ppUsesBlock_token1]; ACTIONS 3 [sym__space];
   ACTIONS 5 [sym_ppDirective]; ACTIONS 3 [sym_comment]; ACTIONS 9868 [sym_kDefault;
   sym_kNodefault; sym_kDispId; sym_kGeneric; sym_kOperator; sym_kPublished; sym_kPublic;
   sym_kProtected; sym_kPrivate; sym_kStrict; sym_kRequired; sym_kOptional; sym_kStatic;
   sym_kVirtual; sym_kAbstract; sym_kDynamic; sym_kOverride; sym_kOverload; sym_kReintroduce;
   sym_kStdcall; sym_kCdecl; sym_kCppdecl; sym_kPascal; sym_kRegister; sym_kMwpascal;
   sym_kMessage; sym_kDeprecated; sym_kExperimental; sym_kPlatform; sym_kUnimplemented;
   sym_kCvar; sym_kExport; sym_kFar; sym_kNear; sym_kSafecall; sym_kAssembler; sym_kNostackframe;
   sym_kInterrupt; sym_kNoreturn; sym_kIocheck; sym_kLocal; sym_kHardfloat; sym_kSoftfloat;
   sym_kMs_abi_default; sym_kMs_abi_cdecl; sym_kSaveregisters; sym_kSysv_abi_default;
   sym_kSysv_abi_cdecl; sym_kVectorcall; sym_kVarargs; sym_kWinapi; sym_kAlias; sym_kCase;
   sym_kClass; sym_kConst; sym_kConstructor; sym_kDestructor; sym_kEnd; sym_kFunction;
   sym_kInline; sym_kProcedure; sym_kProperty; sym_kResourcestring; sym_kThreadvar; sym_kType;
   sym_kVar]].

(** State 2591. *)
Definition ts_parse_table_2591 : parse_row :=
  [ACTIONS 9910 [anon_sym_LBRACK; aux_sym_ppUsesBlock_token1]; ACTIONS 3 [sym__space];
   ACTIONS 5 [sym_ppDirective]; ACTIONS 3 [sym_comment]; ACTIONS 9910 [sym_kDefault;
   sym_kNodefault; sym_kDispId; sym_kGeneric; sym_kOperator; sym_kPublished; sym_kPublic;
   sym_kProtected; sym_kPrivate; sym_kStrict; sym_kRequired; sym_kOptional; sym_kStatic;
   sym_kVirtual; sym_kAbstract; sym_kDynamic; sym_kOverride; sym_kOverload; sym_kReintroduce;
   sym_kStdcall; sym_kCdecl; sym_kCppdecl; sym_kPascal; sym_kRegister; sym_kMwpascal;
   sym_kMessage; sym_kDeprecated; sym_kExperimental; sym_kPlatform; sym_kUnimplemented;
   sym_kCvar; sym_kExport; sym_kFar; sym_kNear; sym_kSafecall; sym_kAssembler; sym_kNostackframe;
   sym_kInterrupt; sym_kNoreturn; sym_kIocheck; sym_kLocal; sym_kHardfloat; sym_kSoftfloat;
   sym_kMs_abi_default; sym_kMs_abi_cdecl; sym_kSaveregisters; sym_kSysv_abi_default;
   sym_kSysv_abi_cdecl; sym_kVectorcall; sym_kVarargs; sym_kWinapi; sym_kAlias; sym_kCase;
   sym_kClass; sym_kConst; sym_kConstructor; sym_kDestructor; sym_kEnd; sym_kFunction;
   sym_kInline; sym_kProcedure; sym_kProperty; sym_kResourcestring; sym_kThreadvar; sym_kType;
   sym_kVar]].

(** State 2592. *)
Definition ts_parse_table_2592 : parse_row :=
  [STATE 2670 [sym__procAttribute]; STATE 15598 [sym_procAttribute];
   STATE 2592 [aux_sym_declProcFwd_repeat1]; ACTIONS 14767 [anon_sym_LBRACK];
   ACTIONS 8588 [aux_sym_ppUsesBlock_token1]; ACTIONS 3 [sym__space];
   ACTIONS 5 [sym_ppDirective]; ACTIONS 3 [sym_comment]; ACTIONS 8588 [sym_identifier];
   ACTIONS 8595 [sym_kDefault; sym_kNodefault]; ACTIONS 8598 [sym_kDispId];
   ACTIONS 8588 [sym_kGeneric; sym_kOperator]; ACTIONS 8601 [sym_kPublic];
   ACTIONS 8595 [sym_kStatic; sym_kVirtual; sym_kAbstract; sym_kDynamic; sym_kOverride;
   sym_kOverload; sym_kReintroduce; sym_kStdcall; sym_kCdecl; sym_kCppdecl; sym_kPascal;
   sym_kRegister; sym_kMwpascal]; ACTIONS 8604 [sym_kMessage]; ACTIONS 8607 [sym_kDeprecated];
   ACTIONS 8595 [sym_kExperimental; sym_kPlatform; sym_kUnimplemented; sym_kCvar];
   ACTIONS 8610 [sym_kExport]; ACTIONS 8595 [sym_kFar; sym_kNear; sym_kSafecall; sym_kAssembler;
   sym_kNostackframe; sym_kInterrupt; sym_kNoreturn; sym_kIocheck; sym_kLocal; sym_kHardfloat;
   sym_kSoftfloat; sym_kMs_abi_default; sym_kMs_abi_cdecl; sym_kSaveregisters;
   sym_kSysv_abi_default; sym_kSysv_abi_cdecl; sym_kVectorcall; sym_kVarargs; sym_kWinapi];
   ACTIONS 8613 [sym_kAlias]; ACTIONS 8588 [sym_kAsm; sym_kBegin; sym_kClass; sym_kConst;
   sym_kConstructor; sym_kDestructor; sym_kExports; sym_kFunction]; ACTIONS 8595 [sym_kInline];
   ACTIONS 8588 [sym_kLabel; sym_kProcedure; sym_kResourcestring; sym_kThreadvar; sym_kType;
   sym_kUses; sym_kVar]].

(** State 2593. *)
Definition ts_parse_table_2593 : parse_row :=
  [ACTIONS 9842 [anon_sym_LBRACK; aux_sym_ppUsesBlock_token1]; ACTIONS 3 [sym__space];
   ACTIONS 5 [sym_ppDirective]; ACTIONS 3 [sym_comment]; ACTIONS 9842 [sym_kDefault;
   sym_kNodefault; sym_kDispId; sym_kGeneric; sym_kOperator; sym_kPublished; sym_kPublic;
   sym_kProtected; sym_kPrivate; sym_kStrict; sym_kRequired; sym_kOptional; sym_kStatic;
   sym_kVirtual; sym_kAbstract; sym_kDynamic; sym_kOverride; sym_kOverload; sym_kReintroduce;
   sym_kStdcall; sym_kCdecl; sym_kCppdecl; sym_kPascal; sym_kRegister; sym_kMwpascal;
   sym_kMessage; sym_kDeprecated; sym_kExperimental; sym_kPlatform; sym_kUnimplemented;
   sym_kCvar; sym_kExport; sym_kFar; sym_kNear; sym_kSafecall; sym_kAssembler; sym_kNostackframe;
   sym_kInterrupt; sym_kNoreturn; sym_kIocheck; sym_kLocal; sym_kHardfloat; sym_kSoftfloat;
   sym_kMs_abi_default; sym_kMs_abi_cdecl; sym_kSaveregisters; sym_kSysv_abi_default;
   sym_kSysv_abi_cdecl; sym_kVectorcall; sym_kVarargs; sym_kWinapi; sym_kAlias; sym_kCase;
   sym_kClass; sym_kConst; sym_kConstructor; sym_kDestructor; sym_kEnd; sym_kFunction;
   sym_kInline; sym_kProcedure; sym_kProperty; sym_kResourcestring; sym_kThreadvar; sym_kType;
   sym_kVar]].

(** State 2594. *)
Definition ts_parse_table_2594 : parse_row :=
  [ACTIONS 9946 [anon_sym_LBRACK; aux_sym_ppUsesBlock_token1]; ACTIONS 3 [sym__space];
   ACTIONS 5 [sym_ppDirective]; ACTIONS 3 [sym_comment]; ACTIONS 9946 [sym_kDefault;
   sym_kNodefault; sym_kDispId; sym_kGeneric; sym_kOperator; sym_kPublished; sym_kPublic;
   sym_kProtected; sym_kPrivate; sym_kStrict; sym_kRequired; sym_kOptional; sym_kStatic;
   sym_kVirtual; sym_kAbstract; sym_kDynamic; sym_kOverride; sym_kOverload; sym_kReintroduce;
   sym_kStdcall; sym_kCdecl; sym_kCppdecl; sym_kPascal; sym_kRegister; sym_kMwpascal;
   sym_kMessage; sym_kDeprecated; sym_kExperimental; sym_kPlatform; sym_kUnimplemented;
   sym_kCvar; sym_kExport; sym_kFar; sym_kNear; sym_kSafecall; sym_kAssembler; sym_kNostackframe;
   sym_kInterrupt; sym_kNoreturn; sym_kIocheck; sym_kLocal; sym_kHardfloat; sym_kSoftfloat;
   sym_kMs_abi_default; sym_kMs_abi_cdecl; sym_kSaveregisters; sym_kSysv_abi_default;
   sym_kSysv_abi_cdecl; sym_kVectorcall; sym_kVarargs; sym_kWinapi; sym_kAlias; sym_kCase;
   sym_kClass; sym_kConst; sym_kConstructor; sym_kDestructor; sym_kEnd; sym_kFunction;
   sym_kInline; sym_kProcedure; sym_kProperty; sym_kResourcestring; sym_kThreadvar; sym_kType;
   sym_kVar]].

(** State 2595. *)
Definition ts_parse_table_2595 : parse_row :=
  [STATE 2670 [sym__procAttribute]; STATE 15598 [sym_procAttribute];
   STATE 2592 [aux_sym_declProcFwd_repeat1]; ACTIONS 14770 [anon_sym_LBRACK];
   ACTIONS 8842 [aux_sym_ppUsesBlock_token1]; ACTIONS 3 [sym__space];
   ACTIONS 5 [sym_ppDirective]; ACTIONS 3 [sym_comment]; ACTIONS 8842 [sym_identifier];
   ACTIONS 1016 [sym_kDefault; sym_kNodefault]; ACTIONS 11641 [sym_kDispId];
   ACTIONS 8842 [sym_kGeneric; sym_kOperator]; ACTIONS 11643 [sym_kPublic];
   ACTIONS 1016 [sym_kStatic; sym_kVirtual; sym_kAbstract; sym_kDynamic; sym_kOverride;
   sym_kOverload; sym_kReintroduce; sym_kStdcall; sym_kCdecl; sym_kCppdecl; sym_kPascal;
   sym_kRegister; sym_kMwpascal]; ACTIONS 11645 [sym_kMessage]; ACTIONS 11647 [sym_kDeprecated];
   ACTIONS 1016 [sym_kExperimental; sym_kPlatform; sym_kUnimplemented; sym_kCvar];
   ACTIONS 11649 [sym_kExport]; ACTIONS 1016 [sym_kFar; sym_kNear; sym_kSafecall; sym_kAssembler;
   sym_kNostackframe; sym_kInterrupt; sym_kNoreturn; sym_kIocheck; sym_kLocal; sym_kHardfloat;
   sym_kSoftfloat; sym_kMs_abi_default; sym_kMs_abi_cdecl; sym_kSaveregisters;
   sym_kSysv_abi_default; sym_kSysv_abi_cdecl; sym_kVectorcall; sym_kVarargs; sym_kWinapi];
   ACTIONS 11651 [sym_kAlias]; ACTIONS 8842 [sym_kAsm; sym_kBegin; sym_kClass; sym_kConst;
   sym_kConstructor; sym_kDestructor; sym_kExports; sym_kFunction]; ACTIONS 1016 [sym_kInline];
   ACTIONS 8842 [sym_kLabel; sym_kProcedure; sym_kResourcestring; sym_kThreadvar; sym_kType;
   sym_kUses; sym_kVar]].

(** State 2596. *)
Definition ts_parse_table_2596 : parse_row :=
  [ACTIONS 11005 [anon_sym_LBRACK; aux_sym_ppUsesBlock_token1]; ACTIONS 3 [sym__space];
   ACTIONS 5 [sym_ppDirective]; ACTIONS 3 [sym_comment]; ACTIONS 11005 [sym_identifier;
   sym_kDefault; sym_kNodefault; sym_kDispId; sym_kGeneric; sym_kOperator; sym_kPublic;
   sym_kStatic; sym_kVirtual; sym_kAbstract; sym_kDynamic; sym_kOverride; sym_kOverload;
   sym_kReintroduce; sym_kStdcall; sym_kCdecl; sym_kCppdecl; sym_kPascal; sym_kRegister;
   sym_kMwpascal; sym_kMessage; sym_kDeprecated; sym_kExperimental; sym_kPlatform;
   sym_kUnimplemented; sym_kCvar; sym_kExport; sym_kFar; sym_kNear; sym_kSafecall;
   sym_kAssembler; sym_kNostackframe; sym_kInterrupt; sym_kNoreturn; sym_kIocheck; sym_kLocal;
   sym_kHardfloat; sym_kSoftfloat; sym_kMs_abi_default; sym_kMs_abi_cdecl; sym_kSaveregisters;
   sym_kSysv_abi_default; sym_kSysv_abi_cdecl; sym_kVectorcall; sym_kVarargs; sym_kWinapi;
   sym_kAlias; sym_kClass; sym_kConst; sym_kConstructor; sym_kDestructor; sym_kEnd; sym_kExports;
   sym_kFinalization; sym_kFunction; sym_kImplementation; sym_kInitialization; sym_kInterface;
   sym_kLabel; sym_kProcedure; sym_kProperty; sym_kResourcestring; sym_kThreadvar; sym_kType;
   sym_kUses; sym_kVar]].

(** State 2597. *)
Definition ts_parse_table_2597 : parse_row :=
  [ACTIONS 11049 [anon_sym_LBRACK; aux_sym_ppUsesBlock_token1]; ACTIONS 3 [sym__space];
   ACTIONS 5 [sym_ppDirective]; ACTIONS 3 [sym_comment]; ACTIONS 11049 [sym_identifier;
   sym_kDefault; sym_kNodefault; sym_kDispId; sym_kGeneric; sym_kOperator; sym_kPublic;
   sym_kStatic; sym_kVirtual; sym_kAbstract; sym_kDynamic; sym_kOverride; sym_kOverload;
   sym_kReintroduce; sym_kStdcall; sym_kCdecl; sym_kCppdecl; sym_kPascal; sym_kRegister;
   sym_kMwpascal; sym_kMessage; sym_kDeprecated; sym_kExperimental; sym_kPlatform;
   sym_kUnimplemented; sym_kCvar; sym_kExport; sym_kFar; sym_kNear; sym_kSafecall;
   sym_kAssembler; sym_kNostackframe; sym_kInterrupt; sym_kNoreturn; sym_kIocheck; sym_kLocal;
   sym_kHardfloat; sym_kSoftfloat; sym_kMs_abi_default; sym_kMs_abi_cdecl; sym_kSaveregisters;
   sym_kSysv_abi_default; sym_kSysv_abi_cdecl; sym_kVectorcall; sym_kVarargs; sym_kWinapi;
   sym_kAlias; sym_kClass; sym_kConst; sym_kConstructor; sym_kDestructor; sym_kEnd; sym_kExports;
   sym_kFinalization; sym_kFunction; sym_kImplementation; sym_kInitialization; sym_kInterface;
   sym_kLabel; sym_kProcedure; sym_kProperty; sym_kResourcestring; sym_kThreadvar; sym_kType;
   sym_kUses; sym_kVar]].

(** State 2598. *)
Definition ts_parse_table_2598 : parse_row :=
  [ACTIONS 9974 [anon_sym_LBRACK; aux_sym_ppUsesBlock_token1]; ACTIONS 3 [sym__space];
   ACTIONS 5 [sym_ppDirective]; ACTIONS 3 [sym_comment]; ACTIONS 9974 [sym_kDefault;
   sym_kNodefault; sym_kDispId; sym_kGeneric; sym_kOperator; sym_kPublished; sym_kPublic;
   sym_kProtected; sym_kPrivate; sym_kStrict; sym_kRequired; sym_kOptional; sym_kStatic;
   sym_kVirtual; sym_kAbstract; sym_kDynamic; sym_kOverride; sym_kOverload; sym_kReintroduce;
   sym_kStdcall; sym_kCdecl; sym_kCppdecl; sym_kPascal; sym_kRegister; sym_kMwpascal;
   sym_kMessage; sym_kDeprecated; sym_kExperimental; sym_kPlatform; sym_kUnimplemented;
   sym_kCvar; sym_kExport; sym_kFar; sym_kNear; sym_kSafecall; sym_kAssembler; sym_kNostackframe;
   sym_kInterrupt; sym_kNoreturn; sym_kIocheck; sym_kLocal; sym_kHardfloat; sym_kSoftfloat;
   sym_kMs_abi_default; sym_kMs_abi_cdecl; sym_kSaveregisters; sym_kSysv_abi_default;
   sym_kSysv_abi_cdecl; sym_kVectorcall; sym_kVarargs; sym_kWinapi; sym_kAlias; sym_kCase;
   sym_kClass; sym_kConst; sym_kConstructor; sym_kDestructor; sym_kEnd; sym_kFunction;
   sym_kInline; sym_kProcedure; sym_kProperty; sym_kResourcestring; sym_kThreadvar; sym_kType;
   sym_kVar]].

(** State 2599. *)
Definition ts_parse_table_2599 : parse_row :=
  [ACTIONS 9850 [anon_sym_LBRACK; aux_sym_ppUsesBlock_token1]; ACTIONS 3 [sym__space];
   ACTIONS 5 [sym_ppDirective]; ACTIONS 3 [sym_comment]; ACTIONS 9850 [sym_kDefault;
   sym_kNodefault; sym_kDispId; sym_kGeneric; sym_kOperator; sym_kPublished; sym_kPublic;
   sym_kProtected; sym_kPrivate; sym_kStrict; sym_kRequired; sym_kOptional; sym_kStatic;
   sym_kVirtual; sym_kAbstract; sym_kDynamic; sym_kOverride; sym_kOverload; sym_kReintroduce;
   sym_kStdcall; sym_kCdecl; sym_kCppdecl; sym_kPascal; sym_kRegister; sym_kMwpascal;
   sym_kMessage; sym_kDeprecated; sym_kExperimental; sym_kPlatform; sym_kUnimplemented;
   sym_kCvar; sym_kExport; sym_kFar; sym_kNear; sym_kSafecall; sym_kAssembler; sym_kNostackframe;
   sym_kInterrupt; sym_kNoreturn; sym_kIocheck; sym_kLocal; sym_kHardfloat; sym_kSoftfloat;
   sym_kMs_abi_default; sym_kMs_abi_cdecl; sym_kSaveregisters; sym_kSysv_abi_default;
   sym_kSysv_abi_cdecl; sym_kVectorcall; sym_kVarargs; sym_kWinapi; sym_kAlias; sym_kCase;
   sym_kClass; sym_kConst; sym_kConstructor; sym_kDestructor; sym_kEnd; sym_kFunction;
   sym_kInline; sym_kProcedure; sym_kProperty; sym_kResourcestring; sym_kThreadvar; sym_kType;
   sym_kVar]].

(** State 2600. *)
Definition ts_parse_table_2600 : parse_row :=
  [STATE 2661 [sym__procAttribute]; STATE 15438 [sym_procAttribute];
   STATE 2555 [aux_sym_declProcFwd_repeat1]; ACTIONS 14773 [anon_sym_LBRACK];
   ACTIONS 8250 [aux_sym_ppUsesBlock_token1]; ACTIONS 3 [sym__space];
   ACTIONS 5 [sym_ppDirective]; ACTIONS 3 [sym_comment]; ACTIONS 8250 [sym_identifier];
   ACTIONS 1016 [sym_kDefault; sym_kNodefault]; ACTIONS 11641 [sym_kDispId];
   ACTIONS 8250 [sym_kGeneric; sym_kOperator]; ACTIONS 11643 [sym_kPublic];
   ACTIONS 1016 [sym_kStatic; sym_kVirtual; sym_kAbstract; sym_kDynamic; sym_kOverride;
   sym_kOverload; sym_kReintroduce; sym_kStdcall; sym_kCdecl; sym_kCppdecl; sym_kPascal;
   sym_kRegister; sym_kMwpascal]; ACTIONS 11645 [sym_kMessage]; ACTIONS 11647 [sym_kDeprecated];
   ACTIONS 1016 [sym_kExperimental; sym_kPlatform; sym_kUnimplemented; sym_kCvar];
   ACTIONS 11649 [sym_kExport]; ACTIONS 1016 [sym_kFar; sym_kNear; sym_kSafecall; sym_kAssembler;
   sym_kNostackframe; sym_kInterrupt; sym_kNoreturn; sym_kIocheck; sym_kLocal; sym_kHardfloat;
   sym_kSoftfloat; sym_kMs_abi_default; sym_kMs_abi_cdecl; sym_kSaveregisters;
   sym_kSysv_abi_default; sym_kSysv_abi_cdecl; sym_kVectorcall; sym_kVarargs; sym_kWinapi];
   ACTIONS 11651 [sym_kAlias]; ACTIONS 8250 [sym_kBegin; sym_kClass; sym_kConst;
   sym_kConstructor; sym_kDestructor; sym_kEnd; sym_kExports; sym_kFunction];
   ACTIONS 1016 [sym_kInline]; ACTIONS 8250 [sym_kLabel; sym_kProcedure; sym_kResourcestring;
   sym_kThreadvar; sym_kType; sym_kUses; sym_kVar]].

(** State 2601. *)
Definition ts_parse_table_2601 : parse_row :=
  [STATE 2728 [sym__procAttribute]; STATE 15159 [sym_procAttribute];
   STATE 2601 [aux_sym_declProcFwd_repeat1]; ACTIONS 8588 [ts_builtin_sym_end];
   ACTIONS 14776 [anon_sym_LBRACK]; ACTIONS 8588 [aux_sym_ppUsesBlock_token1];
   ACTIONS 3 [sym__space]; ACTIONS 5 [sym_ppDirective]; ACTIONS 3 [sym_comment];
   ACTIONS 8595 [sym_kDefault; sym_kNodefault]; ACTIONS 8598 [sym_kDispId];
   ACTIONS 8588 [sym_kGeneric; sym_kOperator]; ACTIONS 8601 [sym_kPublic];
   ACTIONS 8595 [sym_kStatic; sym_kVirtual; sym_kAbstract; sym_kDynamic; sym_kOverride;
   sym_kOverload; sym_kReintroduce; sym_kStdcall; sym_kCdecl; sym_kCppdecl; sym_kPascal;
   sym_kRegister; sym_kMwpascal]; ACTIONS 8604 [sym_kMessage]; ACTIONS 8607 [sym_kDeprecated];
   ACTIONS 8595 [sym_kExperimental; sym_kPlatform; sym_kUnimplemented; sym_kCvar];
   ACTIONS 8610 [sym_kExport]; ACTIONS 8595 [sym_kFar; sym_kNear; sym_kSafecall; sym_kAssembler;
   sym_kNostackframe; sym_kInterrupt; sym_kNoreturn; sym_kIocheck; sym_kLocal; sym_kHardfloat;
   sym_kSoftfloat; sym_kMs_abi_default; sym_kMs_abi_cdecl; sym_kSaveregisters;
   sym_kSysv_abi_default; sym_kSysv_abi_cdecl; sym_kVectorcall; sym_kVarargs; sym_kWinapi];
   ACTIONS 8613 [sym_kAlias]; ACTIONS 8588 [sym_kBegin; sym_kClass; sym_kConst; sym_kConstructor;
   sym_kDestructor; sym_kExports; sym_kFunction]; ACTIONS 8595 [sym_kInline];
   ACTIONS 8588 [sym_kLabel; sym_kProcedure; sym_kResourcestring; sym_kThreadvar; sym_kType;
   sym_kUses; sym_kVar]].

(** State 2602. *)
Definition ts_parse_table_2602 : parse_row :=
  [STATE 2724 [sym__procAttribute]; STATE 14288 [sym_procAttribute];
   STATE 2615 [aux_sym_declProcFwd_repeat1]; ACTIONS 14779 [anon_sym_LBRACK];
   ACTIONS 8138 [aux_sym_ppUsesBlock_token1]; ACTIONS 3 [sym__space];
   ACTIONS 5 [sym_ppDirective]; ACTIONS 3 [sym_comment]; ACTIONS 1016 [sym_kDefault;
   sym_kNodefault]; ACTIONS 11641 [sym_kDispId]; ACTIONS 8138 [sym_kGeneric; sym_kOperator];
   ACTIONS 11643 [sym_kPublic]; ACTIONS 1016 [sym_kStatic; sym_kVirtual; sym_kAbstract;
   sym_kDynamic; sym_kOverride; sym_kOverload; sym_kReintroduce; sym_kStdcall; sym_kCdecl;
   sym_kCppdecl; sym_kPascal; sym_kRegister; sym_kMwpascal]; ACTIONS 11645 [sym_kMessage];
   ACTIONS 11647 [sym_kDeprecated]; ACTIONS 1016 [sym_kExperimental; sym_kPlatform;
   sym_kUnimplemented; sym_kCvar]; ACTIONS 11649 [sym_kExport]; ACTIONS 1016 [sym_kFar;
   sym_kNear; sym_kSafecall; sym_kAssembler; sym_kNostackframe; sym_kInterrupt; sym_kNoreturn;
   sym_kIocheck; sym_kLocal; sym_kHardfloat; sym_kSoftfloat; sym_kMs_abi_default;
   sym_kMs_abi_cdecl; sym_kSaveregisters; sym_kSysv_abi_default; sym_kSysv_abi_cdecl;
   sym_kVectorcall; sym_kVarargs; sym_kWinapi]; ACTIONS 11651 [sym_kAlias];
   ACTIONS 8138 [sym_kBegin; sym_kClass; sym_kConst; sym_kConstructor; sym_kDestructor; sym_kEnd;
   sym_kExports; sym_kFunction]; ACTIONS 1016 [sym_kInline]; ACTIONS 8138 [sym_kLabel;
   sym_kProcedure; sym_kResourcestring; sym_kThreadvar; sym_kType; sym_kUses; sym_kVar]].

(** State 2603. *)
Definition ts_parse_table_2603 : parse_row :=
  [STATE 2724 [sym__procAttribute]; STATE 14288 [sym_procAttribute];
   STATE 2609 [aux_sym_declProcFwd_repeat1]; ACTIONS 14782 [anon_sym_LBRACK];
   ACTIONS 8560 [aux_sym_ppUsesBlock_token1]; ACTIONS 3 [sym__space];
   ACTIONS 5 [sym_ppDirective]; ACTIONS 3 [sym_comment]; ACTIONS 1016 [sym_kDefault;
   sym_kNodefault]; ACTIONS 11641 [sym_kDispId]; ACTIONS 8560 [sym_kGeneric; sym_kOperator];
   ACTIONS 11643 [sym_kPublic]; ACTIONS 1016 [sym_kStatic; sym_kVirtual; sym_kAbstract;
   sym_kDynamic; sym_kOverride; sym_kOverload; sym_kReintroduce; sym_kStdcall; sym_kCdecl;
   sym_kCppdecl; sym_kPascal; sym_kRegister; sym_kMwpascal]; ACTIONS 11645 [sym_kMessage];
   ACTIONS 11647 [sym_kDeprecated]; ACTIONS 1016 [sym_kExperimental; sym_kPlatform;
   sym_kUnimplemented; sym_kCvar]; ACTIONS 11649 [sym_kExport]; ACTIONS 1016 [sym_kFar;
   sym_kNear; sym_kSafecall; sym_kAssembler; sym_kNostackframe; sym_kInterrupt; sym_kNoreturn;
   sym_kIocheck; sym_kLocal; sym_kHardfloat; sym_kSoftfloat; sym_kMs_abi_default;
   sym_kMs_abi_cdecl; sym_kSaveregisters; sym_kSysv_abi_default; sym_kSysv_abi_cdecl;
   sym_kVectorcall; sym_kVarargs; sym_kWinapi]; ACTIONS 11651 [sym_kAlias];
   ACTIONS 8560 [sym_kBegin; sym_kClass; sym_kConst; sym_kConstructor; sym_kDestructor; sym_kEnd;
   sym_kExports; sym_kFunction]; ACTIONS 1016 [sym_kInline]; ACTIONS 8560 [sym_kLabel;
   sym_kProcedure; sym_kResourcestring; sym_kThreadvar; sym_kType; sym_kUses; sym_kVar]].

(** State 2604. *)
Definition ts_parse_table_2604 : parse_row :=
  [STATE 2728 [sym__procAttribute]; STATE 15159 [sym_procAttribute];
   STATE 2610 [aux_sym_declProcFwd_repeat1]; ACTIONS 8138 [ts_builtin_sym_end];
   ACTIONS 14785 [anon_sym_LBRACK]; ACTIONS 8138 [aux_sym_ppUsesBlock_token1];
   ACTIONS 3 [sym__space]; ACTIONS 5 [sym_ppDirective]; ACTIONS 3 [sym_comment];
   ACTIONS 1016 [sym_kDefault; sym_kNodefault]; ACTIONS 11641 [sym_kDispId];
   ACTIONS 8138 [sym_kGeneric; sym_kOperator]; ACTIONS 11643 [sym_kPublic];
   ACTIONS 1016 [sym_kStatic; sym_kVirtual; sym_kAbstract; sym_kDynamic; sym_kOverride;
   sym_kOverload; sym_kReintroduce; sym_kStdcall; sym_kCdecl; sym_kCppdecl; sym_kPascal;
   sym_kRegister; sym_kMwpascal]; ACTIONS 11645 [sym_kMessage]; ACTIONS 11647 [sym_kDeprecated];
   ACTIONS 1016 [sym_kExperimental; sym_kPlatform; sym_kUnimplemented; sym_kCvar];
   ACTIONS 11649 [sym_kExport]; ACTIONS 1016 [sym_kFar; sym_kNear; sym_kSafecall; sym_kAssembler;
   sym_kNostackframe; sym_kInterrupt; sym_kNoreturn; sym_kIocheck; sym_kLocal; sym_kHardfloat;
   sym_kSoftfloat; sym_kMs_abi_default; sym_kMs_abi_cdecl; sym_kSaveregisters;
   sym_kSysv_abi_default; sym_kSysv_abi_cdecl; sym_kVectorcall; sym_kVarargs; sym_kWinapi];
   ACTIONS 11651 [sym_kAlias]; ACTIONS 8138 [sym_kBegin; sym_kClass; sym_kConst;
   sym_kConstructor; sym_kDestructor; sym_kExports; sym_kFunction]; ACTIONS 1016 [sym_kInline];
   ACTIONS 8138 [sym_kLabel; sym_kProcedure; sym_kResourcestring; sym_kThreadvar; sym_kType;
   sym_kUses; sym_kVar]].

(** State 2605. *)
Definition ts_parse_table_2605 : parse_row :=
  [STATE 2728 [sym__procAttribute]; STATE 15159 [sym_procAttribute];
   STATE 2601 [aux_sym_declProcFwd_repeat1]; ACTIONS 8560 [ts_builtin_sym_end];
   ACTIONS 14788 [anon_sym_LBRACK]; ACTIONS 8560 [aux_sym_ppUsesBlock_token1];
   ACTIONS 3 [sym__space]; ACTIONS 5 [sym_ppDirective]; ACTIONS 3 [sym_comment];
   ACTIONS 1016 [sym_kDefault; sym_kNodefault]; ACTIONS 11641 [sym_kDispId];
   ACTIONS 8560 [sym_kGeneric; sym_kOperator]; ACTIONS 11643 [sym_kPublic];
   ACTIONS 1016 [sym_kStatic; sym_kVirtual; sym_kAbstract; sym_kDynamic; sym_kOverride;
   sym_kOverload; sym_kReintroduce; sym_kStdcall; sym_kCdecl; sym_kCppdecl; sym_kPascal;
   sym_kRegister; sym_kMwpascal]; ACTIONS 11645 [sym_kMessage]; ACTIONS 11647 [sym_kDeprecated];
   ACTIONS 1016 [sym_kExperimental; sym_kPlatform; sym_kUnimplemented; sym_kCvar];
   ACTIONS 11649 [sym_kExport]; ACTIONS 1016 [sym_kFar; sym_kNear; sym_kSafecall; sym_kAssembler;
   sym_kNostackframe; sym_kInterrupt; sym_kNoreturn; sym_kIocheck; sym_kLocal; sym_kHardfloat;
   sym_kSoftfloat; sym_kMs_abi_default; sym_kMs_abi_cdecl; sym_kSaveregisters;
   sym_kSysv_abi_default; sym_kSysv_abi_cdecl; sym_kVectorcall; sym_kVarargs; sym_kWinapi];
   ACTIONS 11651 [sym_kAlias]; ACTIONS 8560 [sym_kBegin; sym_kClass; sym_kConst;
   sym_kConstructor; sym_kDestructor; sym_kExports; sym_kFunction]; ACTIONS 1016 [sym_kInline];
   ACTIONS 8560 [sym_kLabel; sym_kProcedure; sym_kResourcestring; sym_kThreadvar; sym_kType;
   sym_kUses; sym_kVar]].

(** State 2606. *)
Definition ts_parse_table_2606 : parse_row :=
  [STATE 2728 [sym__procAttribute]; STATE 15159 [sym_procAttribute];
   STATE 2605 [aux_sym_declProcFwd_repeat1]; ACTIONS 8364 [ts_builtin_sym_end];
   ACTIONS 14791 [anon_sym_LBRACK]; ACTIONS 8364 [aux_sym_ppUsesBlock_token1];
   ACTIONS 3 [sym__space]; ACTIONS 5 [sym_ppDirective]; ACTIONS 3 [sym_comment];
   ACTIONS 1016 [sym_kDefault; sym_kNodefault]; ACTIONS 11641 [sym_kDispId];
   ACTIONS 8364 [sym_kGeneric; sym_kOperator]; ACTIONS 11643 [sym_kPublic];
   ACTIONS 1016 [sym_kStatic; sym_kVirtual; sym_kAbstract; sym_kDynamic; sym_kOverride;
   sym_kOverload; sym_kReintroduce; sym_kStdcall; sym_kCdecl; sym_kCppdecl; sym_kPascal;
   sym_kRegister; sym_kMwpascal]; ACTIONS 11645 [sym_kMessage]; ACTIONS 11647 [sym_kDeprecated];
   ACTIONS 1016 [sym_kExperimental; sym_kPlatform; sym_kUnimplemented; sym_kCvar];
   ACTIONS 11649 [sym_kExport]; ACTIONS 1016 [sym_kFar; sym_kNear; sym_kSafecall; sym_kAssembler;
   sym_kNostackframe; sym_kInterrupt; sym_kNoreturn; sym_kIocheck; sym_kLocal; sym_kHardfloat;
   sym_kSoftfloat; sym_kMs_abi_default; sym_kMs_abi_cdecl; sym_kSaveregisters;
   sym_kSysv_abi_default; sym_kSysv_abi_cdecl; sym_kVectorcall; sym_kVarargs; sym_kWinapi];
   ACTIONS 11651 [sym_kAlias]; ACTIONS 8364 [sym_kBegin; sym_kClass; sym_kConst;
   sym_kConstructor; sym_kDestructor; sym_kExports; sym_kFunction]; ACTIONS 1016 [sym_kInline];
   ACTIONS 8364 [sym_kLabel; sym_kProcedure; sym_kResourcestring; sym_kThreadvar; sym_kType;
   sym_kUses; sym_kVar]].

(** State 2607. *)
Definition ts_parse_table_2607 : parse_row :=
  [STATE 2687 [sym__procAttribute]; STATE 15649 [sym_procAttribute];
   STATE 2608 [aux_sym_declProcFwd_repeat1]; ACTIONS 14794 [anon_sym_LBRACK];
   ACTIONS 8560 [aux_sym_ppUsesBlock_token1]; ACTIONS 3 [sym__space];
   ACTIONS 5 [sym_ppDirective]; ACTIONS 3 [sym_comment]; ACTIONS 1016 [sym_kDefault;
   sym_kNodefault]; ACTIONS 11641 [sym_kDispId]; ACTIONS 8560 [sym_kGeneric; sym_kOperator];
   ACTIONS 11643 [sym_kPublic]; ACTIONS 1016 [sym_kStatic; sym_kVirtual; sym_kAbstract;
   sym_kDynamic; sym_kOverride; sym_kOverload; sym_kReintroduce; sym_kStdcall; sym_kCdecl;
   sym_kCppdecl; sym_kPascal; sym_kRegister; sym_kMwpascal]; ACTIONS 11645 [sym_kMessage];
   ACTIONS 11647 [sym_kDeprecated]; ACTIONS 1016 [sym_kExperimental; sym_kPlatform;
   sym_kUnimplemented; sym_kCvar]; ACTIONS 11649 [sym_kExport]; ACTIONS 1016 [sym_kFar;
   sym_kNear; sym_kSafecall; sym_kAssembler; sym_kNostackframe; sym_kInterrupt; sym_kNoreturn;
   sym_kIocheck; sym_kLocal; sym_kHardfloat; sym_kSoftfloat; sym_kMs_abi_default;
   sym_kMs_abi_cdecl; sym_kSaveregisters; sym_kSysv_abi_default; sym_kSysv_abi_cdecl;
   sym_kVectorcall; sym_kVarargs; sym_kWinapi]; ACTIONS 11651 [sym_kAlias];
   ACTIONS 8560 [sym_kAsm; sym_kBegin; sym_kClass; sym_kConst; sym_kConstructor; sym_kDestructor;
   sym_kExports; sym_kFunction]; ACTIONS 1016 [sym_kInline]; ACTIONS 8560 [sym_kLabel;
   sym_kProcedure; sym_kResourcestring; sym_kThreadvar; sym_kType; sym_kUses; sym_kVar]].

(** State 2608. *)
Definition ts_parse_table_2608 : parse_row :=
  [STATE 2687 [sym__procAttribute]; STATE 15649 [sym_procAttribute];
   STATE 2608 [aux_sym_declProcFwd_repeat1]; ACTIONS 14797 [anon_sym_LBRACK];
   ACTIONS 8588 [aux_sym_ppUsesBlock_token1]; ACTIONS 3 [sym__space];
   ACTIONS 5 [sym_ppDirective]; ACTIONS 3 [sym_comment]; ACTIONS 8595 [sym_kDefault;
   sym_kNodefault]; ACTIONS 8598 [sym_kDispId]; ACTIONS 8588 [sym_kGeneric; sym_kOperator];
   ACTIONS 8601 [sym_kPublic]; ACTIONS 8595 [sym_kStatic; sym_kVirtual; sym_kAbstract;
   sym_kDynamic; sym_kOverride; sym_kOverload; sym_kReintroduce; sym_kStdcall; sym_kCdecl;
   sym_kCppdecl; sym_kPascal; sym_kRegister; sym_kMwpascal]; ACTIONS 8604 [sym_kMessage];
   ACTIONS 8607 [sym_kDeprecated]; ACTIONS 8595 [sym_kExperimental; sym_kPlatform;
   sym_kUnimplemented; sym_kCvar]; ACTIONS 8610 [sym_kExport]; ACTIONS 8595 [sym_kFar; sym_kNear;
   sym_kSafecall; sym_kAssembler; sym_kNostackframe; sym_kInterrupt; sym_kNoreturn; sym_kIocheck;
   sym_kLocal; sym_kHardfloat; sym_kSoftfloat; sym_kMs_abi_default; sym_kMs_abi_cdecl;
   sym_kSaveregisters; sym_kSysv_abi_default; sym_kSysv_abi_cdecl; sym_kVectorcall; sym_kVarargs;
   sym_kWinapi]; ACTIONS 8613 [sym_kAlias]; ACTIONS 8588 [sym_kAsm; sym_kBegin; sym_kClass;
   sym_kConst; sym_kConstructor; sym_kDestructor; sym_kExports; sym_kFunction];
   ACTIONS 8595 [sym_kInline]; ACTIONS 8588 [sym_kLabel; sym_kProcedure; sym_kResourcestring;
   sym_kThreadvar; sym_kType; sym_kUses; sym_kVar]].

(** State 2609. *)
Definition ts_parse_table_2609 : parse_row :=
  [STATE 2724 [sym__procAttribute]; STATE 14288 [sym_procAttribute];
   STATE 2609 [aux_sym_declProcFwd_repeat1]; ACTIONS 14800 [anon_sym_LBRACK];
   ACTIONS 8588 [aux_sym_ppUsesBlock_token1]; ACTIONS 3 [sym__space];
   ACTIONS 5 [sym_ppDirective]; ACTIONS 3 [sym_comment]; ACTIONS 8595 [sym_kDefault;
   sym_kNodefault]; ACTIONS 8598 [sym_kDispId]; ACTIONS 8588 [sym_kGeneric; sym_kOperator];
   ACTIONS 8601 [sym_kPublic]; ACTIONS 8595 [sym_kStatic; sym_kVirtual; sym_kAbstract;
   sym_kDynamic; sym_kOverride; sym_kOverload; sym_kReintroduce; sym_kStdcall; sym_kCdecl;
   sym_kCppdecl; sym_kPascal; sym_kRegister; sym_kMwpascal]; ACTIONS 8604 [sym_kMessage];
   ACTIONS 8607 [sym_kDeprecated]; ACTIONS 8595 [sym_kExperimental; sym_kPlatform;
   sym_kUnimplemented; sym_kCvar]; ACTIONS 8610 [sym_kExport]; ACTIONS 8595 [sym_kFar; sym_kNear;
   sym_kSafecall; sym_kAssembler; sym_kNostackframe; sym_kInterrupt; sym_kNoreturn; sym_kIocheck;
   sym_kLocal; sym_kHardfloat; sym_kSoftfloat; sym_kMs_abi_default; sym_kMs_abi_cdecl;
   sym_kSaveregisters; sym_kSysv_abi_default; sym_kSysv_abi_cdecl; sym_kVectorcall; sym_kVarargs;
   sym_kWinapi]; ACTIONS 8613 [sym_kAlias]; ACTIONS 8588 [sym_kBegin; sym_kClass; sym_kConst;
   sym_kConstructor; sym_kDestructor; sym_kEnd; sym_kExports; sym_kFunction];
   ACTIONS 8595 [sym_kInline]; ACTIONS 8588 [sym_kLabel; sym_kProcedure; sym_kResourcestring;
   sym_kThreadvar; sym_kType; sym_kUses; sym_kVar]].

(** State 2610. *)
Definition ts_parse_table_2610 : parse_row :=
  [STATE 2728 [sym__procAttribute]; STATE 15159 [sym_procAttribute];
   STATE 2601 [aux_sym_declProcFwd_repeat1]; ACTIONS 8392 [ts_builtin_sym_end];
   ACTIONS 14803 [anon_sym_LBRACK]; ACTIONS 8392 [aux_sym_ppUsesBlock_token1];
   ACTIONS 3 [sym__space]; ACTIONS 5 [sym_ppDirective]; ACTIONS 3 [sym_comment];
   ACTIONS 1016 [sym_kDefault; sym_kNodefault]; ACTIONS 11641 [sym_kDispId];
   ACTIONS 8392 [sym_kGeneric; sym_kOperator]; ACTIONS 11643 [sym_kPublic];
   ACTIONS 1016 [sym_kStatic; sym_kVirtual; sym_kAbstract; sym_kDynamic; sym_kOverride;
   sym_kOverload; sym_kReintroduce; sym_kStdcall; sym_kCdecl; sym_kCppdecl; sym_kPascal;
   sym_kRegister; sym_kMwpascal]; ACTIONS 11645 [sym_kMessage]; ACTIONS 11647 [sym_kDeprecated];
   ACTIONS 1016 [sym_kExperimental; sym_kPlatform; sym_kUnimplemented; sym_kCvar];
   ACTIONS 11649 [sym_kExport]; ACTIONS 1016 [sym_kFar; sym_kNear; sym_kSafecall; sym_kAssembler;
   sym_kNostackframe; sym_kInterrupt; sym_kNoreturn; sym_kIocheck; sym_kLocal; sym_kHardfloat;
   sym_kSoftfloat; sym_kMs_abi_default; sym_kMs_abi_cdecl; sym_kSaveregisters;
   sym_kSysv_abi_default; sym_kSysv_abi_cdecl; sym_kVectorcall; sym_kVarargs; sym_kWinapi];
   ACTIONS 11651 [sym_kAlias]; ACTIONS 8392 [sym_kBegin; sym_kClass; sym_kConst;
   sym_kConstructor; sym_kDestructor; sym_kExports; sym_kFunction]; ACTIONS 1016 [sym_kInline];
   ACTIONS 8392 [sym_kLabel; sym_kProcedure; sym_kResourcestring; sym_kThreadvar; sym_kType;
   sym_kUses; sym_kVar]].

(** State 2611. *)
Definition ts_parse_table_2611 : parse_row :=
  [STATE 2687 [sym__procAttribute]; STATE 15649 [sym_procAttribute];
   STATE 2614 [aux_sym_declProcFwd_repeat1]; ACTIONS 14806 [anon_sym_LBRACK];
   ACTIONS 8138 [aux_sym_ppUsesBlock_token1]; ACTIONS 3 [sym__space];
   ACTIONS 5 [sym_ppDirective]; ACTIONS 3 [sym_comment]; ACTIONS 1016 [sym_kDefault;
   sym_kNodefault]; ACTIONS 11641 [sym_kDispId]; ACTIONS 8138 [sym_kGeneric; sym_kOperator];
   ACTIONS 11643 [sym_kPublic]; ACTIONS 1016 [sym_kStatic; sym_kVirtual; sym_kAbstract;
   sym_kDynamic; sym_kOverride; sym_kOverload; sym_kReintroduce; sym_kStdcall; sym_kCdecl;
   sym_kCppdecl; sym_kPascal; sym_kRegister; sym_kMwpascal]; ACTIONS 11645 [sym_kMessage];
   ACTIONS 11647 [sym_kDeprecated]; ACTIONS 1016 [sym_kExperimental; sym_kPlatform;
   sym_kUnimplemented; sym_kCvar]; ACTIONS 11649 [sym_kExport]; ACTIONS 1016 [sym_kFar;
   sym_kNear; sym_kSafecall; sym_kAssembler; sym_kNostackframe; sym_kInterrupt; sym_kNoreturn;
   sym_kIocheck; sym_kLocal; sym_kHardfloat; sym_kSoftfloat; sym_kMs_abi_default;
   sym_kMs_abi_cdecl; sym_kSaveregisters; sym_kSysv_abi_default; sym_kSysv_abi_cdecl;
   sym_kVectorcall; sym_kVarargs; sym_kWinapi]; ACTIONS 11651 [sym_kAlias];
   ACTIONS 8138 [sym_kAsm; sym_kBegin; sym_kClass; sym_kConst; sym_kConstructor; sym_kDestructor;
   sym_kExports; sym_kFunction]; ACTIONS 1016 [sym_kInline]; ACTIONS 8138 [sym_kLabel;
   sym_kProcedure; sym_kResourcestring; sym_kThreadvar; sym_kType; sym_kUses; sym_kVar]].

(** State 2612. *)
Definition ts_parse_table_2612 : parse_row :=
  [STATE 2724 [sym__procAttribute]; STATE 14288 [sym_procAttribute];
   STATE 2603 [aux_sym_declProcFwd_repeat1]; ACTIONS 14809 [anon_sym_LBRACK];
   ACTIONS 8364 [aux_sym_ppUsesBlock_token1]; ACTIONS 3 [sym__space];
   ACTIONS 5 [sym_ppDirective]; ACTIONS 3 [sym_comment]; ACTIONS 1016 [sym_kDefault;
   sym_kNodefault]; ACTIONS 11641 [sym_kDispId]; ACTIONS 8364 [sym_kGeneric; sym_kOperator];
   ACTIONS 11643 [sym_kPublic]; ACTIONS 1016 [sym_kStatic; sym_kVirtual; sym_kAbstract;
   sym_kDynamic; sym_kOverride; sym_kOverload; sym_kReintroduce; sym_kStdcall; sym_kCdecl;
   sym_kCppdecl; sym_kPascal; sym_kRegister; sym_kMwpascal]; ACTIONS 11645 [sym_kMessage];
   ACTIONS 11647 [sym_kDeprecated]; ACTIONS 1016 [sym_kExperimental; sym_kPlatform;
   sym_kUnimplemented; sym_kCvar]; ACTIONS 11649 [sym_kExport]; ACTIONS 1016 [sym_kFar;
   sym_kNear; sym_kSafecall; sym_kAssembler; sym_kNostackframe; sym_kInterrupt; sym_kNoreturn;
   sym_kIocheck; sym_kLocal; sym_kHardfloat; sym_kSoftfloat; sym_kMs_abi_default;
   sym_kMs_abi_cdecl; sym_kSaveregisters; sym_kSysv_abi_default; sym_kSysv_abi_cdecl;
   sym_kVectorcall; sym_kVarargs; sym_kWinapi]; ACTIONS 11651 [sym_kAlias];
   ACTIONS 8364 [sym_kBegin; sym_kClass; sym_kConst; sym_kConstructor; sym_kDestructor; sym_kEnd;
   sym_kExports; sym_kFunction]; ACTIONS 1016 [sym_kInline]; ACTIONS 8364 [sym_kLabel;
   sym_kProcedure; sym_kResourcestring; sym_kThreadvar; sym_kType; sym_kUses; sym_kVar]].

(** State 2613. *)
Definition ts_parse_table_2613 : parse_row :=
  [STATE 2687 [sym__procAttribute]; STATE 15649 [sym_procAttribute];
   STATE 2607 [aux_sym_declProcFwd_repeat1]; ACTIONS 14812 [anon_sym_LBRACK];
   ACTIONS 8364 [aux_sym_ppUsesBlock_token1]; ACTIONS 3 [sym__space];
   ACTIONS 5 [sym_ppDirective]; ACTIONS 3 [sym_comment]; ACTIONS 1016 [sym_kDefault;
   sym_kNodefault]; ACTIONS 11641 [sym_kDispId]; ACTIONS 8364 [sym_kGeneric; sym_kOperator];
   ACTIONS 11643 [sym_kPublic]; ACTIONS 1016 [sym_kStatic; sym_kVirtual; sym_kAbstract;
   sym_kDynamic; sym_kOverride; sym_kOverload; sym_kReintroduce; sym_kStdcall; sym_kCdecl;
   sym_kCppdecl; sym_kPascal; sym_kRegister; sym_kMwpascal]; ACTIONS 11645 [sym_kMessage];
   ACTIONS 11647 [sym_kDeprecated]; ACTIONS 1016 [sym_kExperimental; sym_kPlatform;
   sym_kUnimplemented; sym_kCvar]; ACTIONS 11649 [sym_kExport]; ACTIONS 1016 [sym_kFar;
   sym_kNear; sym_kSafecall; sym_kAssembler; sym_kNostackframe; sym_kInterrupt; sym_kNoreturn;
   sym_kIocheck; sym_kLocal; sym_kHardfloat; sym_kSoftfloat; sym_kMs_abi_default;
   sym_kMs_abi_cdecl; sym_kSaveregisters; sym_kSysv_abi_default; sym_kSysv_abi_cdecl;
   sym_kVectorcall; sym_kVarargs; sym_kWinapi]; ACTIONS 11651 [sym_kAlias];
   ACTIONS 8364 [sym_kAsm; sym_kBegin; sym_kClass; sym_kConst; sym_kConstructor; sym_kDestructor;
   sym_kExports; sym_kFunction]; ACTIONS 1016 [sym_kInline]; ACTIONS 8364 [sym_kLabel;
   sym_kProcedure; sym_kResourcestring; sym_kThreadvar; sym_kType; sym_kUses; sym_kVar]].

(** State 2614. *)
Definition ts_parse_table_2614 : parse_row :=
  [STATE 2687 [sym__procAttribute]; STATE 15649 [sym_procAttribute];
   STATE 2608 [aux_sym_declProcFwd_repeat1]; ACTIONS 14815 [anon_sym_LBRACK];
   ACTIONS 8392 [aux_sym_ppUsesBlock_token1]; ACTIONS 3 [sym__space];
   ACTIONS 5 [sym_ppDirective]; ACTIONS 3 [sym_comment]; ACTIONS 1016 [sym_kDefault;
   sym_kNodefault]; ACTIONS 11641 [sym_kDispId]; ACTIONS 8392 [sym_kGeneric; sym_kOperator];
   ACTIONS 11643 [sym_kPublic]; ACTIONS 1016 [sym_kStatic; sym_kVirtual; sym_kAbstract;
   sym_kDynamic; sym_kOverride; sym_kOverload; sym_kReintroduce; sym_kStdcall; sym_kCdecl;
   sym_kCppdecl; sym_kPascal; sym_kRegister; sym_kMwpascal]; ACTIONS 11645 [sym_kMessage];
   ACTIONS 11647 [sym_kDeprecated]; ACTIONS 1016 [sym_kExperimental; sym_kPlatform;
   sym_kUnimplemented; sym_kCvar]; ACTIONS 11649 [sym_kExport]; ACTIONS 1016 [sym_kFar;
   sym_kNear; sym_kSafecall; sym_kAssembler; sym_kNostackframe; sym_kInterrupt; sym_kNoreturn;
   sym_kIocheck; sym_kLocal; sym_kHardfloat; sym_kSoftfloat; sym_kMs_abi_default;
   sym_kMs_abi_cdecl; sym_kSaveregisters; sym_kSysv_abi_default; sym_kSysv_abi_cdecl;
   sym_kVectorcall; sym_kVarargs; sym_kWinapi]; ACTIONS 11651 [sym_kAlias];
   ACTIONS 8392 [sym_kAsm; sym_kBegin; sym_kClass; sym_kConst; sym_kConstructor; sym_kDestructor;
   sym_kExports; sym_kFunction]; ACTIONS 1016 [sym_kInline]; ACTIONS 8392 [sym_kLabel;
   sym_kProcedure; sym_kResourcestring; sym_kThreadvar; sym_kType; sym_kUses; sym_kVar]].

(** State 2615. *)
Definition ts_parse_table_2615 : parse_row :=
  [STATE 2724 [sym__procAttribute]; STATE 14288 [sym_procAttribute];
   STATE 2609 [aux_sym_declProcFwd_repeat1]; ACTIONS 14818 [anon_sym_LBRACK];
   ACTIONS 8392 [aux_sym_ppUsesBlock_token1]; ACTIONS 3 [sym__space];
   ACTIONS 5 [sym_ppDirective]; ACTIONS 3 [sym_comment]; ACTIONS 1016 [sym_kDefault;
   sym_kNodefault]; ACTIONS 11641 [sym_kDispId]; ACTIONS 8392 [sym_kGeneric; sym_kOperator];
   ACTIONS 11643 [sym_kPublic]; ACTIONS 1016 [sym_kStatic; sym_kVirtual; sym_kAbstract;
   sym_kDynamic; sym_kOverride; sym_kOverload; sym_kReintroduce; sym_kStdcall; sym_kCdecl;
   sym_kCppdecl; sym_kPascal; sym_kRegister; sym_kMwpascal]; ACTIONS 11645 [sym_kMessage];
   ACTIONS 11647 [sym_kDeprecated]; ACTIONS 1016 [sym_kExperimental; sym_kPlatform;
   sym_kUnimplemented; sym_kCvar]; ACTIONS 11649 [sym_kExport]; ACTIONS 1016 [sym_kFar;
   sym_kNear; sym_kSafecall; sym_kAssembler; sym_kNostackframe; sym_kInterrupt; sym_kNoreturn;
   sym_kIocheck; sym_kLocal; sym_kHardfloat; sym_kSoftfloat; sym_kMs_abi_default;
   sym_kMs_abi_cdecl; sym_kSaveregisters; sym_kSysv_abi_default; sym_kSysv_abi_cdecl;
   sym_kVectorcall; sym_kVarargs; sym_kWinapi]; ACTIONS 11651 [sym_kAlias];
   ACTIONS 8392 [sym_kBegin; sym_kClass; sym_kConst; sym_kConstructor; sym_kDestructor; sym_kEnd;
   sym_kExports; sym_kFunction]; ACTIONS 1016 [sym_kInline]; ACTIONS 8392 [sym_kLabel;
   sym_kProcedure; sym_kResourcestring; sym_kThreadvar; sym_kType; sym_kUses; sym_kVar]].

(** State 2616. *)
Definition ts_parse_table_2616 : parse_row :=
  [ACTIONS 9810 [anon_sym_LBRACK; aux_sym_ppUsesBlock_token1]; ACTIONS 3 [sym__space];
   ACTIONS 5 [sym_ppDirective]; ACTIONS 3 [sym_comment]; ACTIONS 9810 [sym_kDefault;
   sym_kNodefault; sym_kDispId; sym_kGeneric; sym_kOperator; sym_kPublic; sym_kForward;
   sym_kStatic; sym_kVirtual; sym_kAbstract; sym_kDynamic; sym_kOverride; sym_kOverload;
   sym_kReintroduce; sym_kStdcall; sym_kCdecl; sym_kCppdecl; sym_kPascal; sym_kRegister;
   sym_kMwpascal; sym_kExternal; sym_kMessage; sym_kDeprecated; sym_kExperimental; sym_kPlatform;
   sym_kUnimplemented; sym_kCvar; sym_kExport; sym_kFar; sym_kNear; sym_kSafecall;
   sym_kAssembler; sym_kNostackframe; sym_kInterrupt; sym_kNoreturn; sym_kIocheck; sym_kLocal;
   sym_kHardfloat; sym_kSoftfloat; sym_kMs_abi_default; sym_kMs_abi_cdecl; sym_kSaveregisters;
   sym_kSysv_abi_default; sym_kSysv_abi_cdecl; sym_kVectorcall; sym_kVarargs; sym_kWinapi;
   sym_kAlias; sym_kAsm; sym_kBegin; sym_kClass; sym_kConst; sym_kConstructor; sym_kDestructor;
   sym_kExports; sym_kFunction; sym_kInline; sym_kLabel; sym_kProcedure; sym_kResourcestring;
   sym_kThreadvar; sym_kType; sym_kUses; sym_kVar]].

(** State 2617. *)
Definition ts_parse_table_2617 : parse_row :=
  [ACTIONS 10576 [anon_sym_LBRACK; aux_sym_ppUsesBlock_token1]; ACTIONS 3 [sym__space];
   ACTIONS 5 [sym_ppDirective]; ACTIONS 3 [sym_comment]; ACTIONS 10576 [sym_identifier;
   sym_kDefault; sym_kNodefault; sym_kDispId; sym_kGeneric; sym_kOperator; sym_kPublic;
   sym_kStatic; sym_kVirtual; sym_kAbstract; sym_kDynamic; sym_kOverride; sym_kOverload;
   sym_kReintroduce; sym_kStdcall; sym_kCdecl; sym_kCppdecl; sym_kPascal; sym_kRegister;
   sym_kMwpascal; sym_kExternal; sym_kMessage; sym_kDeprecated; sym_kExperimental; sym_kPlatform;
   sym_kUnimplemented; sym_kCvar; sym_kExport; sym_kFar; sym_kNear; sym_kSafecall;
   sym_kAssembler; sym_kNostackframe; sym_kInterrupt; sym_kNoreturn; sym_kIocheck; sym_kLocal;
   sym_kHardfloat; sym_kSoftfloat; sym_kMs_abi_default; sym_kMs_abi_cdecl; sym_kSaveregisters;
   sym_kSysv_abi_default; sym_kSysv_abi_cdecl; sym_kVectorcall; sym_kVarargs; sym_kWinapi;
   sym_kAlias; sym_kAsm; sym_kBegin; sym_kClass; sym_kConst; sym_kConstructor; sym_kDestructor;
   sym_kExports; sym_kFunction; sym_kInline; sym_kLabel; sym_kProcedure; sym_kResourcestring;
   sym_kThreadvar; sym_kType; sym_kUses; sym_kVar]].

(** State 2618. *)
Definition ts_parse_table_2618 : parse_row :=
  [ACTIONS 9974 [anon_sym_LBRACK; aux_sym_ppUsesBlock_token1]; ACTIONS 3 [sym__space];
   ACTIONS 5 [sym_ppDirective]; ACTIONS 3 [sym_comment]; ACTIONS 9974 [sym_kDefault;
   sym_kNodefault; sym_kDispId; sym_kGeneric; sym_kOperator; sym_kPublic; sym_kForward;
   sym_kStatic; sym_kVirtual; sym_kAbstract; sym_kDynamic; sym_kOverride; sym_kOverload;
   sym_kReintroduce; sym_kStdcall; sym_kCdecl; sym_kCppdecl; sym_kPascal; sym_kRegister;
   sym_kMwpascal; sym_kExternal; sym_kMessage; sym_kDeprecated; sym_kExperimental; sym_kPlatform;
   sym_kUnimplemented; sym_kCvar; sym_kExport; sym_kFar; sym_kNear; sym_kSafecall;
   sym_kAssembler; sym_kNostackframe; sym_kInterrupt; sym_kNoreturn; sym_kIocheck; sym_kLocal;
   sym_kHardfloat; sym_kSoftfloat; sym_kMs_abi_default; sym_kMs_abi_cdecl; sym_kSaveregisters;
   sym_kSysv_abi_default; sym_kSysv_abi_cdecl; sym_kVectorcall; sym_kVarargs; sym_kWinapi;
   sym_kAlias; sym_kAsm; sym_kBegin; sym_kClass; sym_kConst; sym_kConstructor; sym_kDestructor;
   sym_kExports; sym_kFunction; sym_kInline; sym_kLabel; sym_kProcedure; sym_kResourcestring;
   sym_kThreadvar; sym_kType; sym_kUses; sym_kVar]].

(** State 2619. *)
Definition ts_parse_table_2619 : parse_row :=
  [ACTIONS 10634 [anon_sym_LBRACK; aux_sym_ppUsesBlock_token1]; ACTIONS 3 [sym__space];
   ACTIONS 5 [sym_ppDirective]; ACTIONS 3 [sym_comment]; ACTIONS 10634 [sym_identifier;
   sym_kDefault; sym_kNodefault; sym_kDispId; sym_kGeneric; sym_kOperator; sym_kPublic;
   sym_kStatic; sym_kVirtual; sym_kAbstract; sym_kDynamic; sym_kOverride; sym_kOverload;
   sym_kReintroduce; sym_kStdcall; sym_kCdecl; sym_kCppdecl; sym_kPascal; sym_kRegister;
   sym_kMwpascal; sym_kExternal; sym_kMessage; sym_kDeprecated; sym_kExperimental; sym_kPlatform;
   sym_kUnimplemented; sym_kCvar; sym_kExport; sym_kFar; sym_kNear; sym_kSafecall;
   sym_kAssembler; sym_kNostackframe; sym_kInterrupt; sym_kNoreturn; sym_kIocheck; sym_kLocal;
   sym_kHardfloat; sym_kSoftfloat; sym_kMs_abi_default; sym_kMs_abi_cdecl; sym_kSaveregisters;
   sym_kSysv_abi_default; sym_kSysv_abi_cdecl; sym_kVectorcall; sym_kVarargs; sym_kWinapi;
   sym_kAlias; sym_kBegin; sym_kClass; sym_kConst; sym_kConstructor; sym_kDestructor; sym_kEnd;
   sym_kExports; sym_kFunction; sym_kInline; sym_kLabel; sym_kProcedure; sym_kResourcestring;
   sym_kThreadvar; sym_kType; sym_kUses; sym_kVar]].

(** State 2620. *)
Definition ts_parse_table_2620 : parse_row :=
  [ACTIONS 10590 [anon_sym_LBRACK; aux_sym_ppUsesBlock_token1]; ACTIONS 3 [sym__space];
   ACTIONS 5 [sym_ppDirective]; ACTIONS 3 [sym_comment]; ACTIONS 10590 [sym_identifier;
   sym_kDefault; sym_kNodefault; sym_kDispId; sym_kGeneric; sym_kOperator; sym_kPublic;
   sym_kStatic; sym_kVirtual; sym_kAbstract; sym_kDynamic; sym_kOverride; sym_kOverload;
   sym_kReintroduce; sym_kStdcall; sym_kCdecl; sym_kCppdecl; sym_kPascal; sym_kRegister;
   sym_kMwpascal; sym_kExternal; sym_kMessage; sym_kDeprecated; sym_kExperimental; sym_kPlatform;
   sym_kUnimplemented; sym_kCvar; sym_kExport; sym_kFar; sym_kNear; sym_kSafecall;
   sym_kAssembler; sym_kNostackframe; sym_kInterrupt; sym_kNoreturn; sym_kIocheck; sym_kLocal;
   sym_kHardfloat; sym_kSoftfloat; sym_kMs_abi_default; sym_kMs_abi_cdecl; sym_kSaveregisters;
   sym_kSysv_abi_default; sym_kSysv_abi_cdecl; sym_kVectorcall; sym_kVarargs; sym_kWinapi;
   sym_kAlias; sym_kAsm; sym_kBegin; sym_kClass; sym_kConst; sym_kConstructor; sym_kDestructor;
   sym_kExports; sym_kFunction; sym_kInline; sym_kLabel; sym_kProcedure; sym_kResourcestring;
   sym_kThreadvar; sym_kType; sym_kUses; sym_kVar]].

(** State 2621. *)
Definition ts_parse_table_2621 : parse_row :=
  [ACTIONS 10638 [anon_sym_LBRACK; aux_sym_ppUsesBlock_token1]; ACTIONS 3 [sym__space];
   ACTIONS 5 [sym_ppDirective]; ACTIONS 3 [sym_comment]; ACTIONS 10638 [sym_identifier;
   sym_kDefault; sym_kNodefault; sym_kDispId; sym_kGeneric; sym_kOperator; sym_kPublic;
   sym_kStatic; sym_kVirtual; sym_kAbstract; sym_kDynamic; sym_kOverride; sym_kOverload;
   sym_kReintroduce; sym_kStdcall; sym_kCdecl; sym_kCppdecl; sym_kPascal; sym_kRegister;
   sym_kMwpascal; sym_kExternal; sym_kMessage; sym_kDeprecated; sym_kExperimental; sym_kPlatform;
   sym_kUnimplemented; sym_kCvar; sym_kExport; sym_kFar; sym_kNear; sym_kSafecall;
   sym_kAssembler; sym_kNostackframe; sym_kInterrupt; sym_kNoreturn; sym_kIocheck; sym_kLocal;
   sym_kHardfloat; sym_kSoftfloat; sym_kMs_abi_default; sym_kMs_abi_cdecl; sym_kSaveregisters;
   sym_kSysv_abi_default; sym_kSysv_abi_cdecl; sym_kVectorcall; sym_kVarargs; sym_kWinapi;
   sym_kAlias; sym_kBegin; sym_kClass; sym_kConst; sym_kConstructor; sym_kDestructor; sym_kEnd;
   sym_kExports; sym_kFunction; sym_kInline; sym_kLabel; sym_kProcedure; sym_kResourcestring;
   sym_kThreadvar; sym_kType; sym_kUses; sym_kVar]].

(** State 2622. *)
Definition ts_parse_table_2622 : parse_row :=
  [ACTIONS 10594 [anon_sym_LBRACK; aux_sym_ppUsesBlock_token1]; ACTIONS 3 [sym__space];
   ACTIONS 5 [sym_ppDirective]; ACTIONS 3 [sym_comment]; ACTIONS 10594 [sym_identifier;
   sym_kDefault; sym_kNodefault; sym_kDispId; sym_kGeneric; sym_kOperator; sym_kPublic;
   sym_kStatic; sym_kVirtual; sym_kAbstract; sym_kDynamic; sym_kOverride; sym_kOverload;
   sym_kReintroduce; sym_kStdcall; sym_kCdecl; sym_kCppdecl; sym_kPascal; sym_kRegister;
   sym_kMwpascal; sym_kExternal; sym_kMessage; sym_kDeprecated; sym_kExperimental; sym_kPlatform;
   sym_kUnimplemented; sym_kCvar; sym_kExport; sym_kFar; sym_kNear; sym_kSafecall;
   sym_kAssembler; sym_kNostackframe; sym_kInterrupt; sym_kNoreturn; sym_kIocheck; sym_kLocal;
   sym_kHardfloat; sym_kSoftfloat; sym_kMs_abi_default; sym_kMs_abi_cdecl; sym_kSaveregisters;
   sym_kSysv_abi_default; sym_kSysv_abi_cdecl; sym_kVectorcall; sym_kVarargs; sym_kWinapi;
   sym_kAlias; sym_kAsm; sym_kBegin; sym_kClass; sym_kConst; sym_kConstructor; sym_kDestructor;
   sym_kExports; sym_kFunction; sym_kInline; sym_kLabel; sym_kProcedure; sym_kResourcestring;
   sym_kThreadvar; sym_kType; sym_kUses; sym_kVar]].

(** State 2623. *)
Definition ts_parse_table_2623 : parse_row :=
  [ACTIONS 10594 [anon_sym_LBRACK; aux_sym_ppUsesBlock_token1]; ACTIONS 3 [sym__space];
   ACTIONS 5 [sym_ppDirective]; ACTIONS 3 [sym_comment]; ACTIONS 10594 [sym_identifier;
   sym_kDefault; sym_kNodefault; sym_kDispId; sym_kGeneric; sym_kOperator; sym_kPublic;
   sym_kStatic; sym_kVirtual; sym_kAbstract; sym_kDynamic; sym_kOverride; sym_kOverload;
   sym_kReintroduce; sym_kStdcall; sym_kCdecl; sym_kCppdecl; sym_kPascal; sym_kRegister;
   sym_kMwpascal; sym_kExternal; sym_kMessage; sym_kDeprecated; sym_kExperimental; sym_kPlatform;
   sym_kUnimplemented; sym_kCvar; sym_kExport; sym_kFar; sym_kNear; sym_kSafecall;
   sym_kAssembler; sym_kNostackframe; sym_kInterrupt; sym_kNoreturn; sym_kIocheck; sym_kLocal;
   sym_kHardfloat; sym_kSoftfloat; sym_kMs_abi_default; sym_kMs_abi_cdecl; sym_kSaveregisters;
   sym_kSysv_abi_default; sym_kSysv_abi_cdecl; sym_kVectorcall; sym_kVarargs; sym_kWinapi;
   sym_kAlias; sym_kAsm; sym_kBegin; sym_kClass; sym_kConst; sym_kConstructor; sym_kDestructor;
   sym_kExports; sym_kFunction; sym_kInline; sym_kLabel; sym_kProcedure; sym_kResourcestring;
   sym_kThreadvar; sym_kType; sym_kUses; sym_kVar]].

(** State 2624. *)
Definition ts_parse_table_2624 : parse_row :=
  [ACTIONS 9850 [anon_sym_LBRACK; aux_sym_ppUsesBlock_token1]; ACTIONS 3 [sym__space];
   ACTIONS 5 [sym_ppDirective]; ACTIONS 3 [sym_comment]; ACTIONS 9850 [sym_kDefault;
   sym_kNodefault; sym_kDispId; sym_kGeneric; sym_kOperator; sym_kPublic; sym_kForward;
   sym_kStatic; sym_kVirtual; sym_kAbstract; sym_kDynamic; sym_kOverride; sym_kOverload;
   sym_kReintroduce; sym_kStdcall; sym_kCdecl; sym_kCppdecl; sym_kPascal; sym_kRegister;
   sym_kMwpascal; sym_kExternal; sym_kMessage; sym_kDeprecated; sym_kExperimental; sym_kPlatform;
   sym_kUnimplemented; sym_kCvar; sym_kExport; sym_kFar; sym_kNear; sym_kSafecall;
   sym_kAssembler; sym_kNostackframe; sym_kInterrupt; sym_kNoreturn; sym_kIocheck; sym_kLocal;
   sym_kHardfloat; sym_kSoftfloat; sym_kMs_abi_default; sym_kMs_abi_cdecl; sym_kSaveregisters;
   sym_kSysv_abi_default; sym_kSysv_abi_cdecl; sym_kVectorcall; sym_kVarargs; sym_kWinapi;
   sym_kAlias; sym_kAsm; sym_kBegin; sym_kClass; sym_kConst; sym_kConstructor; sym_kDestructor;
   sym_kExports; sym_kFunction; sym_kInline; sym_kLabel; sym_kProcedure; sym_kResourcestring;
   sym_kThreadvar; sym_kType; sym_kUses; sym_kVar]].

(** State 2625. *)
Definition ts_parse_table_2625 : parse_row :=
  [ACTIONS 9850 [anon_sym_LBRACK; aux_sym_ppUsesBlock_token1]; ACTIONS 3 [sym__space];
   ACTIONS 5 [sym_ppDirective]; ACTIONS 3 [sym_comment]; ACTIONS 9850 [sym_kDefault;
   sym_kNodefault; sym_kDispId; sym_kGeneric; sym_kOperator; sym_kPublic; sym_kForward;
   sym_kStatic; sym_kVirtual; sym_kAbstract; sym_kDynamic; sym_kOverride; sym_kOverload;
   sym_kReintroduce; sym_kStdcall; sym_kCdecl; sym_kCppdecl; sym_kPascal; sym_kRegister;
   sym_kMwpascal; sym_kExternal; sym_kMessage; sym_kDeprecated; sym_kExperimental; sym_kPlatform;
   sym_kUnimplemented; sym_kCvar; sym_kExport; sym_kFar; sym_kNear; sym_kSafecall;
   sym_kAssembler; sym_kNostackframe; sym_kInterrupt; sym_kNoreturn; sym_kIocheck; sym_kLocal;
   sym_kHardfloat; sym_kSoftfloat; sym_kMs_abi_default; sym_kMs_abi_cdecl; sym_kSaveregisters;
   sym_kSysv_abi_default; sym_kSysv_abi_cdecl; sym_kVectorcall; sym_kVarargs; sym_kWinapi;
   sym_kAlias; sym_kAsm; sym_kBegin; sym_kClass; sym_kConst; sym_kConstructor; sym_kDestructor;
   sym_kExports; sym_kFunction; sym_kInline; sym_kLabel; sym_kProcedure; sym_kResourcestring;
   sym_kThreadvar; sym_kType; sym_kUses; sym_kVar]].

(** State 2626. *)
Definition ts_parse_table_2626 : parse_row :=
  [ACTIONS 10634 [ts_builtin_sym_end; anon_sym_LBRACK; aux_sym_ppUsesBlock_token1];
   ACTIONS 3 [sym__space]; ACTIONS 5 [sym_ppDirective]; ACTIONS 3 [sym_comment];
   ACTIONS 10634 [sym_identifier; sym_kDefault; sym_kNodefault; sym_kDispId; sym_kGeneric;
   sym_kOperator; sym_kPublic; sym_kStatic; sym_kVirtual; sym_kAbstract; sym_kDynamic;
   sym_kOverride; sym_kOverload; sym_kReintroduce; sym_kStdcall; sym_kCdecl; sym_kCppdecl;
   sym_kPascal; sym_kRegister; sym_kMwpascal; sym_kExternal; sym_kMessage; sym_kDeprecated;
   sym_kExperimental; sym_kPlatform; sym_kUnimplemented; sym_kCvar; sym_kExport; sym_kFar;
   sym_kNear; sym_kSafecall; sym_kAssembler; sym_kNostackframe; sym_kInterrupt; sym_kNoreturn;
   sym_kIocheck; sym_kLocal; sym_kHardfloat; sym_kSoftfloat; sym_kMs_abi_default;
   sym_kMs_abi_cdecl; sym_kSaveregisters; sym_kSysv_abi_default; sym_kSysv_abi_cdecl;
   sym_kVectorcall; sym_kVarargs; sym_kWinapi; sym_kAlias; sym_kBegin; sym_kClass; sym_kConst;
   sym_kConstructor; sym_kDestructor; sym_kExports; sym_kFunction; sym_kInline; sym_kLabel;
   sym_kProcedure; sym_kResourcestring; sym_kThreadvar; sym_kType; sym_kUses; sym_kVar]].

(** State 2627. *)
Definition ts_parse_table_2627 : parse_row :=
  [ACTIONS 10594 [ts_builtin_sym_end; anon_sym_LBRACK; aux_sym_ppUsesBlock_token1];
   ACTIONS 3 [sym__space]; ACTIONS 5 [sym_ppDirective]; ACTIONS 3 [sym_comment];
   ACTIONS 10594 [sym_identifier; sym_kDefault; sym_kNodefault; sym_kDispId; sym_kGeneric;
   sym_kOperator; sym_kPublic; sym_kStatic; sym_kVirtual; sym_kAbstract; sym_kDynamic;
   sym_kOverride; sym_kOverload; sym_kReintroduce; sym_kStdcall; sym_kCdecl; sym_kCppdecl;
   sym_kPascal; sym_kRegister; sym_kMwpascal; sym_kExternal; sym_kMessage; sym_kDeprecated;
   sym_kExperimental; sym_kPlatform; sym_kUnimplemented; sym_kCvar; sym_kExport; sym_kFar;
   sym_kNear; sym_kSafecall; sym_kAssembler; sym_kNostackframe; sym_kInterrupt; sym_kNoreturn;
   sym_kIocheck; sym_kLocal; sym_kHardfloat; sym_kSoftfloat; sym_kMs_abi_default;
   sym_kMs_abi_cdecl; sym_kSaveregisters; sym_kSysv_abi_default; sym_kSysv_abi_cdecl;
   sym_kVectorcall; sym_kVarargs; sym_kWinapi; sym_kAlias; sym_kBegin; sym_kClass; sym_kConst;
   sym_kConstructor; sym_kDestructor; sym_kExports; sym_kFunction; sym_kInline; sym_kLabel;
   sym_kProcedure; sym_kResourcestring; sym_kThreadvar; sym_kType; sym_kUses; sym_kVar]].

(** State 2628. *)
Definition ts_parse_table_2628 : parse_row :=
  [ACTIONS 10594 [ts_builtin_sym_end; anon_sym_LBRACK; aux_sym_ppUsesBlock_token1];
   ACTIONS 3 [sym__space]; ACTIONS 5 [sym_ppDirective]; ACTIONS 3 [sym_comment];
   ACTIONS 10594 [sym_identifier; sym_kDefault; sym_kNodefault; sym_kDispId; sym_kGeneric;
   sym_kOperator; sym_kPublic; sym_kStatic; sym_kVirtual; sym_kAbstract; sym_kDynamic;
   sym_kOverride; sym_kOverload; sym_kReintroduce; sym_kStdcall; sym_kCdecl; sym_kCppdecl;
   sym_kPascal; sym_kRegister; sym_kMwpascal; sym_kExternal; sym_kMessage; sym_kDeprecated;
   sym_kExperimental; sym_kPlatform; sym_kUnimplemented; sym_kCvar; sym_kExport; sym_kFar;
   sym_kNear; sym_kSafecall; sym_kAssembler; sym_kNostackframe; sym_kInterrupt; sym_kNoreturn;
   sym_kIocheck; sym_kLocal; sym_kHardfloat; sym_kSoftfloat; sym_kMs_abi_default;
   sym_kMs_abi_cdecl; sym_kSaveregisters; sym_kSysv_abi_default; sym_kSysv_abi_cdecl;
   sym_kVectorcall; sym_kVarargs; sym_kWinapi; sym_kAlias; sym_kBegin; sym_kClass; sym_kConst;
   sym_kConstructor; sym_kDestructor; sym_kExports; sym_kFunction; sym_kInline; sym_kLabel;
   sym_kProcedure; sym_kResourcestring; sym_kThreadvar; sym_kType; sym_kUses; sym_kVar]].

(** State 2629. *)
Definition ts_parse_table_2629 : parse_row :=
  [ACTIONS 10590 [ts_builtin_sym_end; anon_sym_LBRACK; aux_sym_ppUsesBlock_token1];
   ACTIONS 3 [sym__space]; ACTIONS 5 [sym_ppDirective]; ACTIONS 3 [sym_comment];
   ACTIONS 10590 [sym_identifier; sym_kDefault; sym_kNodefault; sym_kDispId; sym_kGeneric;
   sym_kOperator; sym_kPublic; sym_kStatic; sym_kVirtual; sym_kAbstract; sym_kDynamic;
   sym_kOverride; sym_kOverload; sym_kReintroduce; sym_kStdcall; sym_kCdecl; sym_kCppdecl;
   sym_kPascal; sym_kRegister; sym_kMwpascal; sym_kExternal; sym_kMessage; sym_kDeprecated;
   sym_kExperimental; sym_kPlatform; sym_kUnimplemented; sym_kCvar; sym_kExport; sym_kFar;
   sym_kNear; sym_kSafecall; sym_kAssembler; sym_kNostackframe; sym_kInterrupt; sym_kNoreturn;
   sym_kIocheck; sym_kLocal; sym_kHardfloat; sym_kSoftfloat; sym_kMs_abi_default;
   sym_kMs_abi_cdecl; sym_kSaveregisters; sym_kSysv_abi_default; sym_kSysv_abi_cdecl;
   sym_kVectorcall; sym_kVarargs; sym_kWinapi; sym_kAlias; sym_kBegin; sym_kClass; sym_kConst;
   sym_kConstructor; sym_kDestructor; sym_kExports; sym_kFunction; sym_kInline; sym_kLabel;
   sym_kProcedure; sym_kResourcestring; sym_kThreadvar; sym_kType; sym_kUses; sym_kVar]].

(** State 2630. *)
Definition ts_parse_table_2630 : parse_row :=
  [ACTIONS 10404 [anon_sym_LBRACK; aux_sym_ppUsesBlock_token1]; ACTIONS 3 [sym__space];
   ACTIONS 5 [sym_ppDirective]; ACTIONS 3 [sym_comment]; ACTIONS 10404 [sym_identifier;
   sym_kDefault; sym_kNodefault; sym_kDispId; sym_kGeneric; sym_kOperator; sym_kPublic;
   sym_kStatic; sym_kVirtual; sym_kAbstract; sym_kDynamic; sym_kOverride; sym_kOverload;
   sym_kReintroduce; sym_kStdcall; sym_kCdecl; sym_kCppdecl; sym_kPascal; sym_kRegister;
   sym_kMwpascal; sym_kExternal; sym_kMessage; sym_kDeprecated; sym_kExperimental; sym_kPlatform;
   sym_kUnimplemented; sym_kCvar; sym_kExport; sym_kFar; sym_kNear; sym_kSafecall;
   sym_kAssembler; sym_kNostackframe; sym_kInterrupt; sym_kNoreturn; sym_kIocheck; sym_kLocal;
   sym_kHardfloat; sym_kSoftfloat; sym_kMs_abi_default; sym_kMs_abi_cdecl; sym_kSaveregisters;
   sym_kSysv_abi_default; sym_kSysv_abi_cdecl; sym_kVectorcall; sym_kVarargs; sym_kWinapi;
   sym_kAlias; sym_kAsm; sym_kBegin; sym_kClass; sym_kConst; sym_kConstructor; sym_kDestructor;
   sym_kExports; sym_kFunction; sym_kInline; sym_kLabel; sym_kProcedure; sym_kResourcestring;
   sym_kThreadvar; sym_kType; sym_kUses; sym_kVar]].

(** State 2631. *)
Definition ts_parse_table_2631 : parse_row :=
  [ACTIONS 9822 [anon_sym_LBRACK; aux_sym_ppUsesBlock_token1]; ACTIONS 3 [sym__space];
   ACTIONS 5 [sym_ppDirective]; ACTIONS 3 [sym_comment]; ACTIONS 9822 [sym_kDefault;
   sym_kNodefault; sym_kDispId; sym_kGeneric; sym_kOperator; sym_kPublic; sym_kForward;
   sym_kStatic; sym_kVirtual; sym_kAbstract; sym_kDynamic; sym_kOverride; sym_kOverload;
   sym_kReintroduce; sym_kStdcall; sym_kCdecl; sym_kCppdecl; sym_kPascal; sym_kRegister;
   sym_kMwpascal; sym_kExternal; sym_kMessage; sym_kDeprecated; sym_kExperimental; sym_kPlatform;
   sym_kUnimplemented; sym_kCvar; sym_kExport; sym_kFar; sym_kNear; sym_kSafecall;
   sym_kAssembler; sym_kNostackframe; sym_kInterrupt; sym_kNoreturn; sym_kIocheck; sym_kLocal;
   sym_kHardfloat; sym_kSoftfloat; sym_kMs_abi_default; sym_kMs_abi_cdecl; sym_kSaveregisters;
   sym_kSysv_abi_default; sym_kSysv_abi_cdecl; sym_kVectorcall; sym_kVarargs; sym_kWinapi;
   sym_kAlias; sym_kAsm; sym_kBegin; sym_kClass; sym_kConst; sym_kConstructor; sym_kDestructor;
   sym_kExports; sym_kFunction; sym_kInline; sym_kLabel; sym_kProcedure; sym_kResourcestring;
   sym_kThreadvar; sym_kType; sym_kUses; sym_kVar]].

(** State 2632. *)
Definition ts_parse_table_2632 : parse_row :=
  [ACTIONS 9858 [anon_sym_LBRACK; aux_sym_ppUsesBlock_token1]; ACTIONS 3 [sym__space];
   ACTIONS 5 [sym_ppDirective]; ACTIONS 3 [sym_comment]; ACTIONS 9858 [sym_kDefault;
   sym_kNodefault; sym_kDispId; sym_kGeneric; sym_kOperator; sym_kPublic; sym_kForward;
   sym_kStatic; sym_kVirtual; sym_kAbstract; sym_kDynamic; sym_kOverride; sym_kOverload;
   sym_kReintroduce; sym_kStdcall; sym_kCdecl; sym_kCppdecl; sym_kPascal; sym_kRegister;
   sym_kMwpascal; sym_kExternal; sym_kMessage; sym_kDeprecated; sym_kExperimental; sym_kPlatform;
   sym_kUnimplemented; sym_kCvar; sym_kExport; sym_kFar; sym_kNear; sym_kSafecall;
   sym_kAssembler; sym_kNostackframe; sym_kInterrupt; sym_kNoreturn; sym_kIocheck; sym_kLocal;
   sym_kHardfloat; sym_kSoftfloat; sym_kMs_abi_default; sym_kMs_abi_cdecl; sym_kSaveregisters;
   sym_kSysv_abi_default; sym_kSysv_abi_cdecl; sym_kVectorcall; sym_kVarargs; sym_kWinapi;
   sym_kAlias; sym_kAsm; sym_kBegin; sym_kClass; sym_kConst; sym_kConstructor; sym_kDestructor;
   sym_kExports; sym_kFunction; sym_kInline; sym_kLabel; sym_kProcedure; sym_kResourcestring;
   sym_kThreadvar; sym_kType; sym_kUses; sym_kVar]].

(** State 2633. *)
Definition ts_parse_table_2633 : parse_row :=
  [ACTIONS 10404 [ts_builtin_sym_end; anon_sym_LBRACK; aux_sym_ppUsesBlock_token1];
   ACTIONS 3 [sym__space]; ACTIONS 5 [sym_ppDirective]; ACTIONS 3 [sym_comment];
   ACTIONS 10404 [sym_identifier; sym_kDefault; sym_kNodefault; sym_kDispId; sym_kGeneric;
   sym_kOperator; sym_kPublic; sym_kStatic; sym_kVirtual; sym_kAbstract; sym_kDynamic;
   sym_kOverride; sym_kOverload; sym_kReintroduce; sym_kStdcall; sym_kCdecl; sym_kCppdecl;
   sym_kPascal; sym_kRegister; sym_kMwpascal; sym_kExternal; sym_kMessage; sym_kDeprecated;
   sym_kExperimental; sym_kPlatform; sym_kUnimplemented; sym_kCvar; sym_kExport; sym_kFar;
   sym_kNear; sym_kSafecall; sym_kAssembler; sym_kNostackframe; sym_kInterrupt; sym_kNoreturn;
   sym_kIocheck; sym_kLocal; sym_kHardfloat; sym_kSoftfloat; sym_kMs_abi_default;
   sym_kMs_abi_cdecl; sym_kSaveregisters; sym_kSysv_abi_default; sym_kSysv_abi_cdecl;
   sym_kVectorcall; sym_kVarargs; sym_kWinapi; sym_kAlias; sym_kBegin; sym_kClass; sym_kConst;
   sym_kConstructor; sym_kDestructor; sym_kExports; sym_kFunction; sym_kInline; sym_kLabel;
   sym_kProcedure; sym_kResourcestring; sym_kThreadvar; sym_kType; sym_kUses; sym_kVar]].

(** State 2634. *)
Definition ts_parse_table_2634 : parse_row :=
  [ACTIONS 10614 [anon_sym_LBRACK; aux_sym_ppUsesBlock_token1]; ACTIONS 3 [sym__space];
   ACTIONS 5 [sym_ppDirective]; ACTIONS 3 [sym_comment]; ACTIONS 10614 [sym_identifier;
   sym_kDefault; sym_kNodefault; sym_kDispId; sym_kGeneric; sym_kOperator; sym_kPublic;
   sym_kStatic; sym_kVirtual; sym_kAbstract; sym_kDynamic; sym_kOverride; sym_kOverload;
   sym_kReintroduce; sym_kStdcall; sym_kCdecl; sym_kCppdecl; sym_kPascal; sym_kRegister;
   sym_kMwpascal; sym_kExternal; sym_kMessage; sym_kDeprecated; sym_kExperimental; sym_kPlatform;
   sym_kUnimplemented; sym_kCvar; sym_kExport; sym_kFar; sym_kNear; sym_kSafecall;
   sym_kAssembler; sym_kNostackframe; sym_kInterrupt; sym_kNoreturn; sym_kIocheck; sym_kLocal;
   sym_kHardfloat; sym_kSoftfloat; sym_kMs_abi_default; sym_kMs_abi_cdecl; sym_kSaveregisters;
   sym_kSysv_abi_default; sym_kSysv_abi_cdecl; sym_kVectorcall; sym_kVarargs; sym_kWinapi;
   sym_kAlias; sym_kAsm; sym_kBegin; sym_kClass; sym_kConst; sym_kConstructor; sym_kDestructor;
   sym_kExports; sym_kFunction; sym_kInline; sym_kLabel; sym_kProcedure; sym_kResourcestring;
   sym_kThreadvar; sym_kType; sym_kUses; sym_kVar]].

(** State 2635. *)
Definition ts_parse_table_2635 : parse_row :=
  [ACTIONS 10638 [ts_builtin_sym_end; anon_sym_LBRACK; aux_sym_ppUsesBlock_token1];
   ACTIONS 3 [sym__space]; ACTIONS 5 [sym_ppDirective]; ACTIONS 3 [sym_comment];
   ACTIONS 10638 [sym_identifier; sym_kDefault; sym_kNodefault; sym_kDispId; sym_kGeneric;
   sym_kOperator; sym_kPublic; sym_kStatic; sym_kVirtual; sym_kAbstract; sym_kDynamic;
   sym_kOverride; sym_kOverload; sym_kReintroduce; sym_kStdcall; sym_kCdecl; sym_kCppdecl;
   sym_kPascal; sym_kRegister; sym_kMwpascal; sym_kExternal; sym_kMessage; sym_kDeprecated;
   sym_kExperimental; sym_kPlatform; sym_kUnimplemented; sym_kCvar; sym_kExport; sym_kFar;
   sym_kNear; sym_kSafecall; sym_kAssembler; sym_kNostackframe; sym_kInterrupt; sym_kNoreturn;
   sym_kIocheck; sym_kLocal; sym_kHardfloat; sym_kSoftfloat; sym_kMs_abi_default;
   sym_kMs_abi_cdecl; sym_kSaveregisters; sym_kSysv_abi_default; sym_kSysv_abi_cdecl;
   sym_kVectorcall; sym_kVarargs; sym_kWinapi; sym_kAlias; sym_kBegin; sym_kClass; sym_kConst;
   sym_kConstructor; sym_kDestructor; sym_kExports; sym_kFunction; sym_kInline; sym_kLabel;
   sym_kProcedure; sym_kResourcestring; sym_kThreadvar; sym_kType; sym_kUses; sym_kVar]].

(** State 2636. *)
Definition ts_parse_table_2636 : parse_row :=
  [ACTIONS 10566 [anon_sym_LBRACK; aux_sym_ppUsesBlock_token1]; ACTIONS 3 [sym__space];
   ACTIONS 5 [sym_ppDirective]; ACTIONS 3 [sym_comment]; ACTIONS 10566 [sym_identifier;
   sym_kDefault; sym_kNodefault; sym_kDispId; sym_kGeneric; sym_kOperator; sym_kPublic;
   sym_kStatic; sym_kVirtual; sym_kAbstract; sym_kDynamic; sym_kOverride; sym_kOverload;
   sym_kReintroduce; sym_kStdcall; sym_kCdecl; sym_kCppdecl; sym_kPascal; sym_kRegister;
   sym_kMwpascal; sym_kExternal; sym_kMessage; sym_kDeprecated; sym_kExperimental; sym_kPlatform;
   sym_kUnimplemented; sym_kCvar; sym_kExport; sym_kFar; sym_kNear; sym_kSafecall;
   sym_kAssembler; sym_kNostackframe; sym_kInterrupt; sym_kNoreturn; sym_kIocheck; sym_kLocal;
   sym_kHardfloat; sym_kSoftfloat; sym_kMs_abi_default; sym_kMs_abi_cdecl; sym_kSaveregisters;
   sym_kSysv_abi_default; sym_kSysv_abi_cdecl; sym_kVectorcall; sym_kVarargs; sym_kWinapi;
   sym_kAlias; sym_kAsm; sym_kBegin; sym_kClass; sym_kConst; sym_kConstructor; sym_kDestructor;
   sym_kExports; sym_kFunction; sym_kInline; sym_kLabel; sym_kProcedure; sym_kResourcestring;
   sym_kThreadvar; sym_kType; sym_kUses; sym_kVar]].

(** State 2637. *)
Definition ts_parse_table_2637 : parse_row :=
  [ACTIONS 10630 [anon_sym_LBRACK; aux_sym_ppUsesBlock_token1]; ACTIONS 3 [sym__space];
   ACTIONS 5 [sym_ppDirective]; ACTIONS 3 [sym_comment]; ACTIONS 10630 [sym_identifier;
   sym_kDefault; sym_kNodefault; sym_kDispId; sym_kGeneric; sym_kOperator; sym_kPublic;
   sym_kStatic; sym_kVirtual; sym_kAbstract; sym_kDynamic; sym_kOverride; sym_kOverload;
   sym_kReintroduce; sym_kStdcall; sym_kCdecl; sym_kCppdecl; sym_kPascal; sym_kRegister;
   sym_kMwpascal; sym_kExternal; sym_kMessage; sym_kDeprecated; sym_kExperimental; sym_kPlatform;
   sym_kUnimplemented; sym_kCvar; sym_kExport; sym_kFar; sym_kNear; sym_kSafecall;
   sym_kAssembler; sym_kNostackframe; sym_kInterrupt; sym_kNoreturn; sym_kIocheck; sym_kLocal;
   sym_kHardfloat; sym_kSoftfloat; sym_kMs_abi_default; sym_kMs_abi_cdecl; sym_kSaveregisters;
   sym_kSysv_abi_default; sym_kSysv_abi_cdecl; sym_kVectorcall; sym_kVarargs; sym_kWinapi;
   sym_kAlias; sym_kAsm; sym_kBegin; sym_kClass; sym_kConst; sym_kConstructor; sym_kDestructor;
   sym_kExports; sym_kFunction; sym_kInline; sym_kLabel; sym_kProcedure; sym_kResourcestring;
   sym_kThreadvar; sym_kType; sym_kUses; sym_kVar]].

(** State 2638. *)
Definition ts_parse_table_2638 : parse_row :=
  [ACTIONS 9868 [anon_sym_LBRACK; aux_sym_ppUsesBlock_token1]; ACTIONS 3 [sym__space];
   ACTIONS 5 [sym_ppDirective]; ACTIONS 3 [sym_comment]; ACTIONS 9868 [sym_kDefault;
   sym_kNodefault; sym_kDispId; sym_kGeneric; sym_kOperator; sym_kPublic; sym_kForward;
   sym_kStatic; sym_kVirtual; sym_kAbstract; sym_kDynamic; sym_kOverride; sym_kOverload;
   sym_kReintroduce; sym_kStdcall; sym_kCdecl; sym_kCppdecl; sym_kPascal; sym_kRegister;
   sym_kMwpascal; sym_kExternal; sym_kMessage; sym_kDeprecated; sym_kExperimental; sym_kPlatform;
   sym_kUnimplemented; sym_kCvar; sym_kExport; sym_kFar; sym_kNear; sym_kSafecall;
   sym_kAssembler; sym_kNostackframe; sym_kInterrupt; sym_kNoreturn; sym_kIocheck; sym_kLocal;
   sym_kHardfloat; sym_kSoftfloat; sym_kMs_abi_default; sym_kMs_abi_cdecl; sym_kSaveregisters;
   sym_kSysv_abi_default; sym_kSysv_abi_cdecl; sym_kVectorcall; sym_kVarargs; sym_kWinapi;
   sym_kAlias; sym_kAsm; sym_kBegin; sym_kClass; sym_kConst; sym_kConstructor; sym_kDestructor;
   sym_kExports; sym_kFunction; sym_kInline; sym_kLabel; sym_kProcedure; sym_kResourcestring;
   sym_kThreadvar; sym_kType; sym_kUses; sym_kVar]].

(** State 2639. *)
Definition ts_parse_table_2639 : parse_row :=
  [ACTIONS 9910 [anon_sym_LBRACK; aux_sym_ppUsesBlock_token1]; ACTIONS 3 [sym__space];
   ACTIONS 5 [sym_ppDirective]; ACTIONS 3 [sym_comment]; ACTIONS 9910 [sym_kDefault;
   sym_kNodefault; sym_kDispId; sym_kGeneric; sym_kOperator; sym_kPublic; sym_kForward;
   sym_kStatic; sym_kVirtual; sym_kAbstract; sym_kDynamic; sym_kOverride; sym_kOverload;
   sym_kReintroduce; sym_kStdcall; sym_kCdecl; sym_kCppdecl; sym_kPascal; sym_kRegister;
   sym_kMwpascal; sym_kExternal; sym_kMessage; sym_kDeprecated; sym_kExperimental; sym_kPlatform;
   sym_kUnimplemented; sym_kCvar; sym_kExport; sym_kFar; sym_kNear; sym_kSafecall;
   sym_kAssembler; sym_kNostackframe; sym_kInterrupt; sym_kNoreturn; sym_kIocheck; sym_kLocal;
   sym_kHardfloat; sym_kSoftfloat; sym_kMs_abi_default; sym_kMs_abi_cdecl; sym_kSaveregisters;
   sym_kSysv_abi_default; sym_kSysv_abi_cdecl; sym_kVectorcall; sym_kVarargs; sym_kWinapi;
   sym_kAlias; sym_kAsm; sym_kBegin; sym_kClass; sym_kConst; sym_kConstructor; sym_kDestructor;
   sym_kExports; sym_kFunction; sym_kInline; sym_kLabel; sym_kProcedure; sym_kResourcestring;
   sym_kThreadvar; sym_kType; sym_kUses; sym_kVar]].

(** State 2640. *)
Definition ts_parse_table_2640 : parse_row :=
  [ACTIONS 10634 [anon_sym_LBRACK; aux_sym_ppUsesBlock_token1]; ACTIONS 3 [sym__space];
   ACTIONS 5 [sym_ppDirective]; ACTIONS 3 [sym_comment]; ACTIONS 10634 [sym_identifier;
   sym_kDefault; sym_kNodefault; sym_kDispId; sym_kGeneric; sym_kOperator; sym_kPublic;
   sym_kStatic; sym_kVirtual; sym_kAbstract; sym_kDynamic; sym_kOverride; sym_kOverload;
   sym_kReintroduce; sym_kStdcall; sym_kCdecl; sym_kCppdecl; sym_kPascal; sym_kRegister;
   sym_kMwpascal; sym_kExternal; sym_kMessage; sym_kDeprecated; sym_kExperimental; sym_kPlatform;
   sym_kUnimplemented; sym_kCvar; sym_kExport; sym_kFar; sym_kNear; sym_kSafecall;
   sym_kAssembler; sym_kNostackframe; sym_kInterrupt; sym_kNoreturn; sym_kIocheck; sym_kLocal;
   sym_kHardfloat; sym_kSoftfloat; sym_kMs_abi_default; sym_kMs_abi_cdecl; sym_kSaveregisters;
   sym_kSysv_abi_default; sym_kSysv_abi_cdecl; sym_kVectorcall; sym_kVarargs; sym_kWinapi;
   sym_kAlias; sym_kAsm; sym_kBegin; sym_kClass; sym_kConst; sym_kConstructor; sym_kDestructor;
   sym_kExports; sym_kFunction; sym_kInline; sym_kLabel; sym_kProcedure; sym_kResourcestring;
   sym_kThreadvar; sym_kType; sym_kUses; sym_kVar]].

(** State 2641. *)
Definition ts_parse_table_2641 : parse_row :=
  [ACTIONS 10566 [anon_sym_LBRACK; aux_sym_ppUsesBlock_token1]; ACTIONS 3 [sym__space];
   ACTIONS 5 [sym_ppDirective]; ACTIONS 3 [sym_comment]; ACTIONS 10566 [sym_identifier;
   sym_kDefault; sym_kNodefault; sym_kDispId; sym_kGeneric; sym_kOperator; sym_kPublic;
   sym_kStatic; sym_kVirtual; sym_kAbstract; sym_kDynamic; sym_kOverride; sym_kOverload;
   sym_kReintroduce; sym_kStdcall; sym_kCdecl; sym_kCppdecl; sym_kPascal; sym_kRegister;
   sym_kMwpascal; sym_kExternal; sym_kMessage; sym_kDeprecated; sym_kExperimental; sym_kPlatform;
   sym_kUnimplemented; sym_kCvar; sym_kExport; sym_kFar; sym_kNear; sym_kSafecall;
   sym_kAssembler; sym_kNostackframe; sym_kInterrupt; sym_kNoreturn; sym_kIocheck; sym_kLocal;
   sym_kHardfloat; sym_kSoftfloat; sym_kMs_abi_default; sym_kMs_abi_cdecl; sym_kSaveregisters;
   sym_kSysv_abi_default; sym_kSysv_abi_cdecl; sym_kVectorcall; sym_kVarargs; sym_kWinapi;
   sym_kAlias; sym_kBegin; sym_kClass; sym_kConst; sym_kConstructor; sym_kDestructor; sym_kEnd;
   sym_kExports; sym_kFunction; sym_kInline; sym_kLabel; sym_kProcedure; sym_kResourcestring;
   sym_kThreadvar; sym_kType; sym_kUses; sym_kVar]].

(** State 2642. *)
Definition ts_parse_table_2642 : parse_row :=
  [ACTIONS 10576 [anon_sym_LBRACK; aux_sym_ppUsesBlock_token1]; ACTIONS 3 [sym__space];
   ACTIONS 5 [sym_ppDirective]; ACTIONS 3 [sym_comment]; ACTIONS 10576 [sym_identifier;
   sym_kDefault; sym_kNodefault; sym_kDispId; sym_kGeneric; sym_kOperator; sym_kPublic;
   sym_kStatic; sym_kVirtual; sym_kAbstract; sym_kDynamic; sym_kOverride; sym_kOverload;
   sym_kReintroduce; sym_kStdcall; sym_kCdecl; sym_kCppdecl; sym_kPascal; sym_kRegister;
   sym_kMwpascal; sym_kExternal; sym_kMessage; sym_kDeprecated; sym_kExperimental; sym_kPlatform;
   sym_kUnimplemented; sym_kCvar; sym_kExport; sym_kFar; sym_kNear; sym_kSafecall;
   sym_kAssembler; sym_kNostackframe; sym_kInterrupt; sym_kNoreturn; sym_kIocheck; sym_kLocal;
   sym_kHardfloat; sym_kSoftfloat; sym_kMs_abi_default; sym_kMs_abi_cdecl; sym_kSaveregisters;
   sym_kSysv_abi_default; sym_kSysv_abi_cdecl; sym_kVectorcall; sym_kVarargs; sym_kWinapi;
   sym_kAlias; sym_kBegin; sym_kClass; sym_kConst; sym_kConstructor; sym_kDestructor; sym_kEnd;
   sym_kExports; sym_kFunction; sym_kInline; sym_kLabel; sym_kProcedure; sym_kResourcestring;
   sym_kThreadvar; sym_kType; sym_kUses; sym_kVar]].

(** State 2643. *)
Definition ts_parse_table_2643 : parse_row :=
  [ACTIONS 10590 [anon_sym_LBRACK; aux_sym_ppUsesBlock_token1]; ACTIONS 3 [sym__space];
   ACTIONS 5 [sym_ppDirective]; ACTIONS 3 [sym_comment]; ACTIONS 10590 [sym_identifier;
   sym_kDefault; sym_kNodefault; sym_kDispId; sym_kGeneric; sym_kOperator; sym_kPublic;
   sym_kStatic; sym_kVirtual; sym_kAbstract; sym_kDynamic; sym_kOverride; sym_kOverload;
   sym_kReintroduce; sym_kStdcall; sym_kCdecl; sym_kCppdecl; sym_kPascal; sym_kRegister;
   sym_kMwpascal; sym_kExternal; sym_kMessage; sym_kDeprecated; sym_kExperimental; sym_kPlatform;
   sym_kUnimplemented; sym_kCvar; sym_kExport; sym_kFar; sym_kNear; sym_kSafecall;
   sym_kAssembler; sym_kNostackframe; sym_kInterrupt; sym_kNoreturn; sym_kIocheck; sym_kLocal;
   sym_kHardfloat; sym_kSoftfloat; sym_kMs_abi_default; sym_kMs_abi_cdecl; sym_kSaveregisters;
   sym_kSysv_abi_default; sym_kSysv_abi_cdecl; sym_kVectorcall; sym_kVarargs; sym_kWinapi;
   sym_kAlias; sym_kBegin; sym_kClass; sym_kConst; sym_kConstructor; sym_kDestructor; sym_kEnd;
   sym_kExports; sym_kFunction; sym_kInline; sym_kLabel; sym_kProcedure; sym_kResourcestring;
   sym_kThreadvar; sym_kType; sym_kUses; sym_kVar]].

(** State 2644. *)
Definition ts_parse_table_2644 : parse_row :=
  [ACTIONS 10594 [anon_sym_LBRACK; aux_sym_ppUsesBlock_token1]; ACTIONS 3 [sym__space];
   ACTIONS 5 [sym_ppDirective]; ACTIONS 3 [sym_comment]; ACTIONS 10594 [sym_identifier;
   sym_kDefault; sym_kNodefault; sym_kDispId; sym_kGeneric; sym_kOperator; sym_kPublic;
   sym_kStatic; sym_kVirtual; sym_kAbstract; sym_kDynamic; sym_kOverride; sym_kOverload;
   sym_kReintroduce; sym_kStdcall; sym_kCdecl; sym_kCppdecl; sym_kPascal; sym_kRegister;
   sym_kMwpascal; sym_kExternal; sym_kMessage; sym_kDeprecated; sym_kExperimental; sym_kPlatform;
   sym_kUnimplemented; sym_kCvar; sym_kExport; sym_kFar; sym_kNear; sym_kSafecall;
   sym_kAssembler; sym_kNostackframe; sym_kInterrupt; sym_kNoreturn; sym_kIocheck; sym_kLocal;
   sym_kHardfloat; sym_kSoftfloat; sym_kMs_abi_default; sym_kMs_abi_cdecl; sym_kSaveregisters;
   sym_kSysv_abi_default; sym_kSysv_abi_cdecl; sym_kVectorcall; sym_kVarargs; sym_kWinapi;
   sym_kAlias; sym_kBegin; sym_kClass; sym_kConst; sym_kConstructor; sym_kDestructor; sym_kEnd;
   sym_kExports; sym_kFunction; sym_kInline; sym_kLabel; sym_kProcedure; sym_kResourcestring;
   sym_kThreadvar; sym_kType; sym_kUses; sym_kVar]].

(** State 2645. *)
Definition ts_parse_table_2645 : parse_row :=
  [ACTIONS 10594 [anon_sym_LBRACK; aux_sym_ppUsesBlock_token1]; ACTIONS 3 [sym__space];
   ACTIONS 5 [sym_ppDirective]; ACTIONS 3 [sym_comment]; ACTIONS 10594 [sym_identifier;
   sym_kDefault; sym_kNodefault; sym_kDispId; sym_kGeneric; sym_kOperator; sym_kPublic;
   sym_kStatic; sym_kVirtual; sym_kAbstract; sym_kDynamic; sym_kOverride; sym_kOverload;
   sym_kReintroduce; sym_kStdcall; sym_kCdecl; sym_kCppdecl; sym_kPascal; sym_kRegister;
   sym_kMwpascal; sym_kExternal; sym_kMessage; sym_kDeprecated; sym_kExperimental; sym_kPlatform;
   sym_kUnimplemented; sym_kCvar; sym_kExport; sym_kFar; sym_kNear; sym_kSafecall;
   sym_kAssembler; sym_kNostackframe; sym_kInterrupt; sym_kNoreturn; sym_kIocheck; sym_kLocal;
   sym_kHardfloat; sym_kSoftfloat; sym_kMs_abi_default; sym_kMs_abi_cdecl; sym_kSaveregisters;
   sym_kSysv_abi_default; sym_kSysv_abi_cdecl; sym_kVectorcall; sym_kVarargs; sym_kWinapi;
   sym_kAlias; sym_kBegin; sym_kClass; sym_kConst; sym_kConstructor; sym_kDestructor; sym_kEnd;
   sym_kExports; sym_kFunction; sym_kInline; sym_kLabel; sym_kProcedure; sym_kResourcestring;
   sym_kThreadvar; sym_kType; sym_kUses; sym_kVar]].

(** State 2646. *)
Definition ts_parse_table_2646 : parse_row :=
  [ACTIONS 10638 [anon_sym_LBRACK; aux_sym_ppUsesBlock_token1]; ACTIONS 3 [sym__space];
   ACTIONS 5 [sym_ppDirective]; ACTIONS 3 [sym_comment]; ACTIONS 10638 [sym_identifier;
   sym_kDefault; sym_kNodefault; sym_kDispId; sym_kGeneric; sym_kOperator; sym_kPublic;
   sym_kStatic; sym_kVirtual; sym_kAbstract; sym_kDynamic; sym_kOverride; sym_kOverload;
   sym_kReintroduce; sym_kStdcall; sym_kCdecl; sym_kCppdecl; sym_kPascal; sym_kRegister;
   sym_kMwpascal; sym_kExternal; sym_kMessage; sym_kDeprecated; sym_kExperimental; sym_kPlatform;
   sym_kUnimplemented; sym_kCvar; sym_kExport; sym_kFar; sym_kNear; sym_kSafecall;
   sym_kAssembler; sym_kNostackframe; sym_kInterrupt; sym_kNoreturn; sym_kIocheck; sym_kLocal;
   sym_kHardfloat; sym_kSoftfloat; sym_kMs_abi_default; sym_kMs_abi_cdecl; sym_kSaveregisters;
   sym_kSysv_abi_default; sym_kSysv_abi_cdecl; sym_kVectorcall; sym_kVarargs; sym_kWinapi;
   sym_kAlias; sym_kAsm; sym_kBegin; sym_kClass; sym_kConst; sym_kConstructor; sym_kDestructor;
   sym_kExports; sym_kFunction; sym_kInline; sym_kLabel; sym_kProcedure; sym_kResourcestring;
   sym_kThreadvar; sym_kType; sym_kUses; sym_kVar]].

(** State 2647. *)
Definition ts_parse_table_2647 : parse_row :=
  [ACTIONS 9842 [anon_sym_LBRACK; aux_sym_ppUsesBlock_token1]; ACTIONS 3 [sym__space];
   ACTIONS 5 [sym_ppDirective]; ACTIONS 3 [sym_comment]; ACTIONS 9842 [sym_kDefault;
   sym_kNodefault; sym_kDispId; sym_kGeneric; sym_kOperator; sym_kPublic; sym_kForward;
   sym_kStatic; sym_kVirtual; sym_kAbstract; sym_kDynamic; sym_kOverride; sym_kOverload;
   sym_kReintroduce; sym_kStdcall; sym_kCdecl; sym_kCppdecl; sym_kPascal; sym_kRegister;
   sym_kMwpascal; sym_kExternal; sym_kMessage; sym_kDeprecated; sym_kExperimental; sym_kPlatform;
   sym_kUnimplemented; sym_kCvar; sym_kExport; sym_kFar; sym_kNear; sym_kSafecall;
   sym_kAssembler; sym_kNostackframe; sym_kInterrupt; sym_kNoreturn; sym_kIocheck; sym_kLocal;
   sym_kHardfloat; sym_kSoftfloat; sym_kMs_abi_default; sym_kMs_abi_cdecl; sym_kSaveregisters;
   sym_kSysv_abi_default; sym_kSysv_abi_cdecl; sym_kVectorcall; sym_kVarargs; sym_kWinapi;
   sym_kAlias; sym_kAsm; sym_kBegin; sym_kClass; sym_kConst; sym_kConstructor; sym_kDestructor;
   sym_kExports; sym_kFunction; sym_kInline; sym_kLabel; sym_kProcedure; sym_kResourcestring;
   sym_kThreadvar; sym_kType; sym_kUses; sym_kVar]].

(** State 2648. *)
Definition ts_parse_table_2648 : parse_row :=
  [ACTIONS 9834 [anon_sym_LBRACK; aux_sym_ppUsesBlock_token1]; ACTIONS 3 [sym__space];
   ACTIONS 5 [sym_ppDirective]; ACTIONS 3 [sym_comment]; ACTIONS 9834 [sym_kDefault;
   sym_kNodefault; sym_kDispId; sym_kGeneric; sym_kOperator; sym_kPublic; sym_kForward;
   sym_kStatic; sym_kVirtual; sym_kAbstract; sym_kDynamic; sym_kOverride; sym_kOverload;
   sym_kReintroduce; sym_kStdcall; sym_kCdecl; sym_kCppdecl; sym_kPascal; sym_kRegister;
   sym_kMwpascal; sym_kExternal; sym_kMessage; sym_kDeprecated; sym_kExperimental; sym_kPlatform;
   sym_kUnimplemented; sym_kCvar; sym_kExport; sym_kFar; sym_kNear; sym_kSafecall;
   sym_kAssembler; sym_kNostackframe; sym_kInterrupt; sym_kNoreturn; sym_kIocheck; sym_kLocal;
   sym_kHardfloat; sym_kSoftfloat; sym_kMs_abi_default; sym_kMs_abi_cdecl; sym_kSaveregisters;
   sym_kSysv_abi_default; sym_kSysv_abi_cdecl; sym_kVectorcall; sym_kVarargs; sym_kWinapi;
   sym_kAlias; sym_kAsm; sym_kBegin; sym_kClass; sym_kConst; sym_kConstructor; sym_kDestructor;
   sym_kExports; sym_kFunction; sym_kInline; sym_kLabel; sym_kProcedure; sym_kResourcestring;
   sym_kThreadvar; sym_kType; sym_kUses; sym_kVar]].

(** State 2649. *)
Definition ts_parse_table_2649 : parse_row :=
  [ACTIONS 9946 [anon_sym_LBRACK; aux_sym_ppUsesBlock_token1]; ACTIONS 3 [sym__space];
   ACTIONS 5 [sym_ppDirective]; ACTIONS 3 [sym_comment]; ACTIONS 9946 [sym_kDefault;
   sym_kNodefault; sym_kDispId; sym_kGeneric; sym_kOperator; sym_kPublic; sym_kForward;
   sym_kStatic; sym_kVirtual; sym_kAbstract; sym_kDynamic; sym_kOverride; sym_kOverload;
   sym_kReintroduce; sym_kStdcall; sym_kCdecl; sym_kCppdecl; sym_kPascal; sym_kRegister;
   sym_kMwpascal; sym_kExternal; sym_kMessage; sym_kDeprecated; sym_kExperimental; sym_kPlatform;
   sym_kUnimplemented; sym_kCvar; sym_kExport; sym_kFar; sym_kNear; sym_kSafecall;
   sym_kAssembler; sym_kNostackframe; sym_kInterrupt; sym_kNoreturn; sym_kIocheck; sym_kLocal;
   sym_kHardfloat; sym_kSoftfloat; sym_kMs_abi_default; sym_kMs_abi_cdecl; sym_kSaveregisters;
   sym_kSysv_abi_default; sym_kSysv_abi_cdecl; sym_kVectorcall; sym_kVarargs; sym_kWinapi;
   sym_kAlias; sym_kAsm; sym_kBegin; sym_kClass; sym_kConst; sym_kConstructor; sym_kDestructor;
   sym_kExports; sym_kFunction; sym_kInline; sym_kLabel; sym_kProcedure; sym_kResourcestring;
   sym_kThreadvar; sym_kType; sym_kUses; sym_kVar]].

(** State 2650. *)
Definition ts_parse_table_2650 : parse_row :=
  [ACTIONS 10614 [anon_sym_LBRACK; aux_sym_ppUsesBlock_token1]; ACTIONS 3 [sym__space];
   ACTIONS 5 [sym_ppDirective]; ACTIONS 3 [sym_comment]; ACTIONS 10614 [sym_identifier;
   sym_kDefault; sym_kNodefault; sym_kDispId; sym_kGeneric; sym_kOperator; sym_kPublic;
   sym_kStatic; sym_kVirtual; sym_kAbstract; sym_kDynamic; sym_kOverride; sym_kOverload;
   sym_kReintroduce; sym_kStdcall; sym_kCdecl; sym_kCppdecl; sym_kPascal; sym_kRegister;
   sym_kMwpascal; sym_kExternal; sym_kMessage; sym_kDeprecated; sym_kExperimental; sym_kPlatform;
   sym_kUnimplemented; sym_kCvar; sym_kExport; sym_kFar; sym_kNear; sym_kSafecall;
   sym_kAssembler; sym_kNostackframe; sym_kInterrupt; sym_kNoreturn; sym_kIocheck; sym_kLocal;
   sym_kHardfloat; sym_kSoftfloat; sym_kMs_abi_default; sym_kMs_abi_cdecl; sym_kSaveregisters;
   sym_kSysv_abi_default; sym_kSysv_abi_cdecl; sym_kVectorcall; sym_kVarargs; sym_kWinapi;
   sym_kAlias; sym_kBegin; sym_kClass; sym_kConst; sym_kConstructor; sym_kDestructor; sym_kEnd;
   sym_kExports; sym_kFunction; sym_kInline; sym_kLabel; sym_kProcedure; sym_kResourcestring;
   sym_kThreadvar; sym_kType; sym_kUses; sym_kVar]].

(** State 2651. *)
Definition ts_parse_table_2651 : parse_row :=
  [ACTIONS 10630 [anon_sym_LBRACK; aux_sym_ppUsesBlock_token1]; ACTIONS 3 [sym__space];
   ACTIONS 5 [sym_ppDirective]; ACTIONS 3 [sym_comment]; ACTIONS 10630 [sym_identifier;
   sym_kDefault; sym_kNodefault; sym_kDispId; sym_kGeneric; sym_kOperator; sym_kPublic;
   sym_kStatic; sym_kVirtual; sym_kAbstract; sym_kDynamic; sym_kOverride; sym_kOverload;
   sym_kReintroduce; sym_kStdcall; sym_kCdecl; sym_kCppdecl; sym_kPascal; sym_kRegister;
   sym_kMwpascal; sym_kExternal; sym_kMessage; sym_kDeprecated; sym_kExperimental; sym_kPlatform;
   sym_kUnimplemented; sym_kCvar; sym_kExport; sym_kFar; sym_kNear; sym_kSafecall;
   sym_kAssembler; sym_kNostackframe; sym_kInterrupt; sym_kNoreturn; sym_kIocheck; sym_kLocal;
   sym_kHardfloat; sym_kSoftfloat; sym_kMs_abi_default; sym_kMs_abi_cdecl; sym_kSaveregisters;
   sym_kSysv_abi_default; sym_kSysv_abi_cdecl; sym_kVectorcall; sym_kVarargs; sym_kWinapi;
   sym_kAlias; sym_kBegin; sym_kClass; sym_kConst; sym_kConstructor; sym_kDestructor; sym_kEnd;
   sym_kExports; sym_kFunction; sym_kInline; sym_kLabel; sym_kProcedure; sym_kResourcestring;
   sym_kThreadvar; sym_kType; sym_kUses; sym_kVar]].

(** State 2652. *)
Definition ts_parse_table_2652 : parse_row :=
  [ACTIONS 10614 [ts_builtin_sym_end; anon_sym_LBRACK; aux_sym_ppUsesBlock_token1];
   ACTIONS 3 [sym__space]; ACTIONS 5 [sym_ppDirective]; ACTIONS 3 [sym_comment];
   ACTIONS 10614 [sym_identifier; sym_kDefault; sym_kNodefault; sym_kDispId; sym_kGeneric;
   sym_kOperator; sym_kPublic; sym_kStatic; sym_kVirtual; sym_kAbstract; sym_kDynamic;
   sym_kOverride; sym_kOverload; sym_kReintroduce; sym_kStdcall; sym_kCdecl; sym_kCppdecl;
   sym_kPascal; sym_kRegister; sym_kMwpascal; sym_kExternal; sym_kMessage; sym_kDeprecated;
   sym_kExperimental; sym_kPlatform; sym_kUnimplemented; sym_kCvar; sym_kExport; sym_kFar;
   sym_kNear; sym_kSafecall; sym_kAssembler; sym_kNostackframe; sym_kInterrupt; sym_kNoreturn;
   sym_kIocheck; sym_kLocal; sym_kHardfloat; sym_kSoftfloat; sym_kMs_abi_default;
   sym_kMs_abi_cdecl; sym_kSaveregisters; sym_kSysv_abi_default; sym_kSysv_abi_cdecl;
   sym_kVectorcall; sym_kVarargs; sym_kWinapi; sym_kAlias; sym_kBegin; sym_kClass; sym_kConst;
   sym_kConstructor; sym_kDestructor; sym_kExports; sym_kFunction; sym_kInline; sym_kLabel;
   sym_kProcedure; sym_kResourcestring; sym_kThreadvar; sym_kType; sym_kUses; sym_kVar]].

(** State 2653. *)
Definition ts_parse_table_2653 : parse_row :=
  [ACTIONS 10622 [ts_builtin_sym_end; anon_sym_LBRACK; aux_sym_ppUsesBlock_token1];
   ACTIONS 3 [sym__space]; ACTIONS 5 [sym_ppDirective]; ACTIONS 3 [sym_comment];
   ACTIONS 10622 [sym_identifier; sym_kDefault; sym_kNodefault; sym_kDispId; sym_kGeneric;
   sym_kOperator; sym_kPublic; sym_kStatic; sym_kVirtual; sym_kAbstract; sym_kDynamic;
   sym_kOverride; sym_kOverload; sym_kReintroduce; sym_kStdcall; sym_kCdecl; sym_kCppdecl;
   sym_kPascal; sym_kRegister; sym_kMwpascal; sym_kExternal; sym_kMessage; sym_kDeprecated;
   sym_kExperimental; sym_kPlatform; sym_kUnimplemented; sym_kCvar; sym_kExport; sym_kFar;
   sym_kNear; sym_kSafecall; sym_kAssembler; sym_kNostackframe; sym_kInterrupt; sym_kNoreturn;
   sym_kIocheck; sym_kLocal; sym_kHardfloat; sym_kSoftfloat; sym_kMs_abi_default;
   sym_kMs_abi_cdecl; sym_kSaveregisters; sym_kSysv_abi_default; sym_kSysv_abi_cdecl;
   sym_kVectorcall; sym_kVarargs; sym_kWinapi; sym_kAlias; sym_kBegin; sym_kClass; sym_kConst;
   sym_kConstructor; sym_kDestructor; sym_kExports; sym_kFunction; sym_kInline; sym_kLabel;
   sym_kProcedure; sym_kResourcestring; sym_kThreadvar; sym_kType; sym_kUses; sym_kVar]].

(** State 2654. *)
Definition ts_parse_table_2654 : parse_row :=
  [ACTIONS 10566 [ts_builtin_sym_end; anon_sym_LBRACK; aux_sym_ppUsesBlock_token1];
   ACTIONS 3 [sym__space]; ACTIONS 5 [sym_ppDirective]; ACTIONS 3 [sym_comment];
   ACTIONS 10566 [sym_identifier; sym_kDefault; sym_kNodefault; sym_kDispId; sym_kGeneric;
   sym_kOperator; sym_kPublic; sym_kStatic; sym_kVirtual; sym_kAbstract; sym_kDynamic;
   sym_kOverride; sym_kOverload; sym_kReintroduce; sym_kStdcall; sym_kCdecl; sym_kCppdecl;
   sym_kPascal; sym_kRegister; sym_kMwpascal; sym_kExternal; sym_kMessage; sym_kDeprecated;
   sym_kExperimental; sym_kPlatform; sym_kUnimplemented; sym_kCvar; sym_kExport; sym_kFar;
   sym_kNear; sym_kSafecall; sym_kAssembler; sym_kNostackframe; sym_kInterrupt; sym_kNoreturn;
   sym_kIocheck; sym_kLocal; sym_kHardfloat; sym_kSoftfloat; sym_kMs_abi_default;
   sym_kMs_abi_cdecl; sym_kSaveregisters; sym_kSysv_abi_default; sym_kSysv_abi_cdecl;
   sym_kVectorcall; sym_kVarargs; sym_kWinapi; sym_kAlias; sym_kBegin; sym_kClass; sym_kConst;
   sym_kConstructor; sym_kDestructor; sym_kExports; sym_kFunction; sym_kInline; sym_kLabel;
   sym_kProcedure; sym_kResourcestring; sym_kThreadvar; sym_kType; sym_kUses; sym_kVar]].

(** State 2655. *)
Definition ts_parse_table_2655 : parse_row :=
  [ACTIONS 9838 [anon_sym_LBRACK; aux_sym_ppUsesBlock_token1]; ACTIONS 3 [sym__space];
   ACTIONS 5 [sym_ppDirective]; ACTIONS 3 [sym_comment]; ACTIONS 9838 [sym_kDefault;
   sym_kNodefault; sym_kDispId; sym_kGeneric; sym_kOperator; sym_kPublic; sym_kForward;
   sym_kStatic; sym_kVirtual; sym_kAbstract; sym_kDynamic; sym_kOverride; sym_kOverload;
   sym_kReintroduce; sym_kStdcall; sym_kCdecl; sym_kCppdecl; sym_kPascal; sym_kRegister;
   sym_kMwpascal; sym_kExternal; sym_kMessage; sym_kDeprecated; sym_kExperimental; sym_kPlatform;
   sym_kUnimplemented; sym_kCvar; sym_kExport; sym_kFar; sym_kNear; sym_kSafecall;
   sym_kAssembler; sym_kNostackframe; sym_kInterrupt; sym_kNoreturn; sym_kIocheck; sym_kLocal;
   sym_kHardfloat; sym_kSoftfloat; sym_kMs_abi_default; sym_kMs_abi_cdecl; sym_kSaveregisters;
   sym_kSysv_abi_default; sym_kSysv_abi_cdecl; sym_kVectorcall; sym_kVarargs; sym_kWinapi;
   sym_kAlias; sym_kAsm; sym_kBegin; sym_kClass; sym_kConst; sym_kConstructor; sym_kDestructor;
   sym_kExports; sym_kFunction; sym_kInline; sym_kLabel; sym_kProcedure; sym_kResourcestring;
   sym_kThreadvar; sym_kType; sym_kUses; sym_kVar]].

(** State 2656. *)
Definition ts_parse_table_2656 : parse_row :=
  [ACTIONS 10404 [anon_sym_LBRACK; aux_sym_ppUsesBlock_token1]; ACTIONS 3 [sym__space];
   ACTIONS 5 [sym_ppDirective]; ACTIONS 3 [sym_comment]; ACTIONS 10404 [sym_identifier;
   sym_kDefault; sym_kNodefault; sym_kDispId; sym_kGeneric; sym_kOperator; sym_kPublic;
   sym_kStatic; sym_kVirtual; sym_kAbstract; sym_kDynamic; sym_kOverride; sym_kOverload;
   sym_kReintroduce; sym_kStdcall; sym_kCdecl; sym_kCppdecl; sym_kPascal; sym_kRegister;
   sym_kMwpascal; sym_kExternal; sym_kMessage; sym_kDeprecated; sym_kExperimental; sym_kPlatform;
   sym_kUnimplemented; sym_kCvar; sym_kExport; sym_kFar; sym_kNear; sym_kSafecall;
   sym_kAssembler; sym_kNostackframe; sym_kInterrupt; sym_kNoreturn; sym_kIocheck; sym_kLocal;
   sym_kHardfloat; sym_kSoftfloat; sym_kMs_abi_default; sym_kMs_abi_cdecl; sym_kSaveregisters;
   sym_kSysv_abi_default; sym_kSysv_abi_cdecl; sym_kVectorcall; sym_kVarargs; sym_kWinapi;
   sym_kAlias; sym_kBegin; sym_kClass; sym_kConst; sym_kConstructor; sym_kDestructor; sym_kEnd;
   sym_kExports; sym_kFunction; sym_kInline; sym_kLabel; sym_kProcedure; sym_kResourcestring;
   sym_kThreadvar; sym_kType; sym_kUses; sym_kVar]].

(** State 2657. *)
Definition ts_parse_table_2657 : parse_row :=
  [ACTIONS 10622 [anon_sym_LBRACK; aux_sym_ppUsesBlock_token1]; ACTIONS 3 [sym__space];
   ACTIONS 5 [sym_ppDirective]; ACTIONS 3 [sym_comment]; ACTIONS 10622 [sym_identifier;
   sym_kDefault; sym_kNodefault; sym_kDispId; sym_kGeneric; sym_kOperator; sym_kPublic;
   sym_kStatic; sym_kVirtual; sym_kAbstract; sym_kDynamic; sym_kOverride; sym_kOverload;
   sym_kReintroduce; sym_kStdcall; sym_kCdecl; sym_kCppdecl; sym_kPascal; sym_kRegister;
   sym_kMwpascal; sym_kExternal; sym_kMessage; sym_kDeprecated; sym_kExperimental; sym_kPlatform;
   sym_kUnimplemented; sym_kCvar; sym_kExport; sym_kFar; sym_kNear; sym_kSafecall;
   sym_kAssembler; sym_kNostackframe; sym_kInterrupt; sym_kNoreturn; sym_kIocheck; sym_kLocal;
   sym_kHardfloat; sym_kSoftfloat; sym_kMs_abi_default; sym_kMs_abi_cdecl; sym_kSaveregisters;
   sym_kSysv_abi_default; sym_kSysv_abi_cdecl; sym_kVectorcall; sym_kVarargs; sym_kWinapi;
   sym_kAlias; sym_kBegin; sym_kClass; sym_kConst; sym_kConstructor; sym_kDestructor; sym_kEnd;
   sym_kExports; sym_kFunction; sym_kInline; sym_kLabel; sym_kProcedure; sym_kResourcestring;
   sym_kThreadvar; sym_kType; sym_kUses; sym_kVar]].

(** State 2658. *)
Definition ts_parse_table_2658 : parse_row :=
  [ACTIONS 10630 [ts_builtin_sym_end; anon_sym_LBRACK; aux_sym_ppUsesBlock_token1];
   ACTIONS 3 [sym__space]; ACTIONS 5 [sym_ppDirective]; ACTIONS 3 [sym_comment];
   ACTIONS 10630 [sym_identifier; sym_kDefault; sym_kNodefault; sym_kDispId; sym_kGeneric;
   sym_kOperator; sym_kPublic; sym_kStatic; sym_kVirtual; sym_kAbstract; sym_kDynamic;
   sym_kOverride; sym_kOverload; sym_kReintroduce; sym_kStdcall; sym_kCdecl; sym_kCppdecl;
   sym_kPascal; sym_kRegister; sym_kMwpascal; sym_kExternal; sym_kMessage; sym_kDeprecated;
   sym_kExperimental; sym_kPlatform; sym_kUnimplemented; sym_kCvar; sym_kExport; sym_kFar;
   sym_kNear; sym_kSafecall; sym_kAssembler; sym_kNostackframe; sym_kInterrupt; sym_kNoreturn;
   sym_kIocheck; sym_kLocal; sym_kHardfloat; sym_kSoftfloat; sym_kMs_abi_default;
   sym_kMs_abi_cdecl; sym_kSaveregisters; sym_kSysv_abi_default; sym_kSysv_abi_cdecl;
   sym_kVectorcall; sym_kVarargs; sym_kWinapi; sym_kAlias; sym_kBegin; sym_kClass; sym_kConst;
   sym_kConstructor; sym_kDestructor; sym_kExports; sym_kFunction; sym_kInline; sym_kLabel;
   sym_kProcedure; sym_kResourcestring; sym_kThreadvar; sym_kType; sym_kUses; sym_kVar]].

(** State 2659. *)
Definition ts_parse_table_2659 : parse_row :=
  [ACTIONS 10576 [ts_builtin_sym_end; anon_sym_LBRACK; aux_sym_ppUsesBlock_token1];
   ACTIONS 3 [sym__space]; ACTIONS 5 [sym_ppDirective]; ACTIONS 3 [sym_comment];
   ACTIONS 10576 [sym_identifier; sym_kDefault; sym_kNodefault; sym_kDispId; sym_kGeneric;
   sym_kOperator; sym_kPublic; sym_kStatic; sym_kVirtual; sym_kAbstract; sym_kDynamic;
   sym_kOverride; sym_kOverload; sym_kReintroduce; sym_kStdcall; sym_kCdecl; sym_kCppdecl;
   sym_kPascal; sym_kRegister; sym_kMwpascal; sym_kExternal; sym_kMessage; sym_kDeprecated;
   sym_kExperimental; sym_kPlatform; sym_kUnimplemented; sym_kCvar; sym_kExport; sym_kFar;
   sym_kNear; sym_kSafecall; sym_kAssembler; sym_kNostackframe; sym_kInterrupt; sym_kNoreturn;
   sym_kIocheck; sym_kLocal; sym_kHardfloat; sym_kSoftfloat; sym_kMs_abi_default;
   sym_kMs_abi_cdecl; sym_kSaveregisters; sym_kSysv_abi_default; sym_kSysv_abi_cdecl;
   sym_kVectorcall; sym_kVarargs; sym_kWinapi; sym_kAlias; sym_kBegin; sym_kClass; sym_kConst;
   sym_kConstructor; sym_kDestructor; sym_kExports; sym_kFunction; sym_kInline; sym_kLabel;
   sym_kProcedure; sym_kResourcestring; sym_kThreadvar; sym_kType; sym_kUses; sym_kVar]].

(** State 2660. *)
Definition ts_parse_table_2660 : parse_row :=
  [ACTIONS 10622 [anon_sym_LBRACK; aux_sym_ppUsesBlock_token1]; ACTIONS 3 [sym__space];
   ACTIONS 5 [sym_ppDirective]; ACTIONS 3 [sym_comment]; ACTIONS 10622 [sym_identifier;
   sym_kDefault; sym_kNodefault; sym_kDispId; sym_kGeneric; sym_kOperator; sym_kPublic;
   sym_kStatic; sym_kVirtual; sym_kAbstract; sym_kDynamic; sym_kOverride; sym_kOverload;
   sym_kReintroduce; sym_kStdcall; sym_kCdecl; sym_kCppdecl; sym_kPascal; sym_kRegister;
   sym_kMwpascal; sym_kExternal; sym_kMessage; sym_kDeprecated; sym_kExperimental; sym_kPlatform;
   sym_kUnimplemented; sym_kCvar; sym_kExport; sym_kFar; sym_kNear; sym_kSafecall;
   sym_kAssembler; sym_kNostackframe; sym_kInterrupt; sym_kNoreturn; sym_kIocheck; sym_kLocal;
   sym_kHardfloat; sym_kSoftfloat; sym_kMs_abi_default; sym_kMs_abi_cdecl; sym_kSaveregisters;
   sym_kSysv_abi_default; sym_kSysv_abi_cdecl; sym_kVectorcall; sym_kVarargs; sym_kWinapi;
   sym_kAlias; sym_kAsm; sym_kBegin; sym_kClass; sym_kConst; sym_kConstructor; sym_kDestructor;
   sym_kExports; sym_kFunction; sym_kInline; sym_kLabel; sym_kProcedure; sym_kResourcestring;
   sym_kThreadvar; sym_kType; sym_kUses; sym_kVar]].

(** State 2661. *)
Definition ts_parse_table_2661 : parse_row :=
  [ACTIONS 10796 [anon_sym_LBRACK; aux_sym_ppUsesBlock_token1]; ACTIONS 3 [sym__space];
   ACTIONS 5 [sym_ppDirective]; ACTIONS 3 [sym_comment]; ACTIONS 10796 [sym_identifier;
   sym_kDefault; sym_kNodefault; sym_kDispId; sym_kGeneric; sym_kOperator; sym_kPublic;
   sym_kStatic; sym_kVirtual; sym_kAbstract; sym_kDynamic; sym_kOverride; sym_kOverload;
   sym_kReintroduce; sym_kStdcall; sym_kCdecl; sym_kCppdecl; sym_kPascal; sym_kRegister;
   sym_kMwpascal; sym_kMessage; sym_kDeprecated; sym_kExperimental; sym_kPlatform;
   sym_kUnimplemented; sym_kCvar; sym_kExport; sym_kFar; sym_kNear; sym_kSafecall;
   sym_kAssembler; sym_kNostackframe; sym_kInterrupt; sym_kNoreturn; sym_kIocheck; sym_kLocal;
   sym_kHardfloat; sym_kSoftfloat; sym_kMs_abi_default; sym_kMs_abi_cdecl; sym_kSaveregisters;
   sym_kSysv_abi_default; sym_kSysv_abi_cdecl; sym_kVectorcall; sym_kVarargs; sym_kWinapi;
   sym_kAlias; sym_kBegin; sym_kClass; sym_kConst; sym_kConstructor; sym_kDestructor; sym_kEnd;
   sym_kExports; sym_kFunction; sym_kInline; sym_kLabel; sym_kProcedure; sym_kResourcestring;
   sym_kThreadvar; sym_kType; sym_kUses; sym_kVar]].

(** State 2662. *)
Definition ts_parse_table_2662 : parse_row :=
  [ACTIONS 10590 [ts_builtin_sym_end; anon_sym_LBRACK; aux_sym_ppUsesBlock_token1];
   ACTIONS 3 [sym__space]; ACTIONS 5 [sym_ppDirective]; ACTIONS 3 [sym_comment];
   ACTIONS 10590 [sym_identifier; sym_kDefault; sym_kNodefault; sym_kDispId; sym_kGeneric;
   sym_kOperator; sym_kPublic; sym_kStatic; sym_kVirtual; sym_kAbstract; sym_kDynamic;
   sym_kOverride; sym_kOverload; sym_kReintroduce; sym_kStdcall; sym_kCdecl; sym_kCppdecl;
   sym_kPascal; sym_kRegister; sym_kMwpascal; sym_kMessage; sym_kDeprecated; sym_kExperimental;
   sym_kPlatform; sym_kUnimplemented; sym_kCvar; sym_kExport; sym_kFar; sym_kNear; sym_kSafecall;
   sym_kAssembler; sym_kNostackframe; sym_kInterrupt; sym_kNoreturn; sym_kIocheck; sym_kLocal;
   sym_kHardfloat; sym_kSoftfloat; sym_kMs_abi_default; sym_kMs_abi_cdecl; sym_kSaveregisters;
   sym_kSysv_abi_default; sym_kSysv_abi_cdecl; sym_kVectorcall; sym_kVarargs; sym_kWinapi;
   sym_kAlias; sym_kBegin; sym_kClass; sym_kConst; sym_kConstructor; sym_kDestructor;
   sym_kExports; sym_kFunction; sym_kInline; sym_kLabel; sym_kProcedure; sym_kResourcestring;
   sym_kThreadvar; sym_kType; sym_kUses; sym_kVar]].

(** State 2663. *)
Definition ts_parse_table_2663 : parse_row :=
  [ACTIONS 10796 [ts_builtin_sym_end; anon_sym_LBRACK; aux_sym_ppUsesBlock_token1];
   ACTIONS 3 [sym__space]; ACTIONS 5 [sym_ppDirective]; ACTIONS 3 [sym_comment];
   ACTIONS 10796 [sym_identifier; sym_kDefault; sym_kNodefault; sym_kDispId; sym_kGeneric;
   sym_kOperator; sym_kPublic; sym_kStatic; sym_kVirtual; sym_kAbstract; sym_kDynamic;
   sym_kOverride; sym_kOverload; sym_kReintroduce; sym_kStdcall; sym_kCdecl; sym_kCppdecl;
   sym_kPascal; sym_kRegister; sym_kMwpascal; sym_kMessage; sym_kDeprecated; sym_kExperimental;
   sym_kPlatform; sym_kUnimplemented; sym_kCvar; sym_kExport; sym_kFar; sym_kNear; sym_kSafecall;
   sym_kAssembler; sym_kNostackframe; sym_kInterrupt; sym_kNoreturn; sym_kIocheck; sym_kLocal;
   sym_kHardfloat; sym_kSoftfloat; sym_kMs_abi_default; sym_kMs_abi_cdecl; sym_kSaveregisters;
   sym_kSysv_abi_default; sym_kSysv_abi_cdecl; sym_kVectorcall; sym_kVarargs; sym_kWinapi;
   sym_kAlias; sym_kBegin; sym_kClass; sym_kConst; sym_kConstructor; sym_kDestructor;
   sym_kExports; sym_kFunction; sym_kInline; sym_kLabel; sym_kProcedure; sym_kResourcestring;
   sym_kThreadvar; sym_kType; sym_kUses; sym_kVar]].

(** State 2664. *)
Definition ts_parse_table_2664 : parse_row :=
  [ACTIONS 10566 [anon_sym_LBRACK; aux_sym_ppUsesBlock_token1]; ACTIONS 3 [sym__space];
   ACTIONS 5 [sym_ppDirective]; ACTIONS 3 [sym_comment]; ACTIONS 10566 [sym_identifier;
   sym_kDefault; sym_kNodefault; sym_kDispId; sym_kGeneric; sym_kOperator; sym_kPublic;
   sym_kStatic; sym_kVirtual; sym_kAbstract; sym_kDynamic; sym_kOverride; sym_kOverload;
   sym_kReintroduce; sym_kStdcall; sym_kCdecl; sym_kCppdecl; sym_kPascal; sym_kRegister;
   sym_kMwpascal; sym_kMessage; sym_kDeprecated; sym_kExperimental; sym_kPlatform;
   sym_kUnimplemented; sym_kCvar; sym_kExport; sym_kFar; sym_kNear; sym_kSafecall;
   sym_kAssembler; sym_kNostackframe; sym_kInterrupt; sym_kNoreturn; sym_kIocheck; sym_kLocal;
   sym_kHardfloat; sym_kSoftfloat; sym_kMs_abi_default; sym_kMs_abi_cdecl; sym_kSaveregisters;
   sym_kSysv_abi_default; sym_kSysv_abi_cdecl; sym_kVectorcall; sym_kVarargs; sym_kWinapi;
   sym_kAlias; sym_kBegin; sym_kClass; sym_kConst; sym_kConstructor; sym_kDestructor; sym_kEnd;
   sym_kExports; sym_kFunction; sym_kInline; sym_kLabel; sym_kProcedure; sym_kResourcestring;
   sym_kThreadvar; sym_kType; sym_kUses; sym_kVar]].

(** State 2665. *)
Definition ts_parse_table_2665 : parse_row :=
  [ACTIONS 10594 [ts_builtin_sym_end; anon_sym_LBRACK; aux_sym_ppUsesBlock_token1];
   ACTIONS 3 [sym__space]; ACTIONS 5 [sym_ppDirective]; ACTIONS 3 [sym_comment];
   ACTIONS 10594 [sym_identifier; sym_kDefault; sym_kNodefault; sym_kDispId; sym_kGeneric;
   sym_kOperator; sym_kPublic; sym_kStatic; sym_kVirtual; sym_kAbstract; sym_kDynamic;
   sym_kOverride; sym_kOverload; sym_kReintroduce; sym_kStdcall; sym_kCdecl; sym_kCppdecl;
   sym_kPascal; sym_kRegister; sym_kMwpascal; sym_kMessage; sym_kDeprecated; sym_kExperimental;
   sym_kPlatform; sym_kUnimplemented; sym_kCvar; sym_kExport; sym_kFar; sym_kNear; sym_kSafecall;
   sym_kAssembler; sym_kNostackframe; sym_kInterrupt; sym_kNoreturn; sym_kIocheck; sym_kLocal;
   sym_kHardfloat; sym_kSoftfloat; sym_kMs_abi_default; sym_kMs_abi_cdecl; sym_kSaveregisters;
   sym_kSysv_abi_default; sym_kSysv_abi_cdecl; sym_kVectorcall; sym_kVarargs; sym_kWinapi;
   sym_kAlias; sym_kBegin; sym_kClass; sym_kConst; sym_kConstructor; sym_kDestructor;
   sym_kExports; sym_kFunction; sym_kInline; sym_kLabel; sym_kProcedure; sym_kResourcestring;
   sym_kThreadvar; sym_kType; sym_kUses; sym_kVar]].

(** State 2666. *)
Definition ts_parse_table_2666 : parse_row :=
  [ACTIONS 10594 [anon_sym_LBRACK; aux_sym_ppUsesBlock_token1]; ACTIONS 3 [sym__space];
   ACTIONS 5 [sym_ppDirective]; ACTIONS 3 [sym_comment]; ACTIONS 10594 [sym_identifier;
   sym_kDefault; sym_kNodefault; sym_kDispId; sym_kGeneric; sym_kOperator; sym_kPublic;
   sym_kStatic; sym_kVirtual; sym_kAbstract; sym_kDynamic; sym_kOverride; sym_kOverload;
   sym_kReintroduce; sym_kStdcall; sym_kCdecl; sym_kCppdecl; sym_kPascal; sym_kRegister;
   sym_kMwpascal; sym_kMessage; sym_kDeprecated; sym_kExperimental; sym_kPlatform;
   sym_kUnimplemented; sym_kCvar; sym_kExport; sym_kFar; sym_kNear; sym_kSafecall;
   sym_kAssembler; sym_kNostackframe; sym_kInterrupt; sym_kNoreturn; sym_kIocheck; sym_kLocal;
   sym_kHardfloat; sym_kSoftfloat; sym_kMs_abi_default; sym_kMs_abi_cdecl; sym_kSaveregisters;
   sym_kSysv_abi_default; sym_kSysv_abi_cdecl; sym_kVectorcall; sym_kVarargs; sym_kWinapi;
   sym_kAlias; sym_kAsm; sym_kBegin; sym_kClass; sym_kConst; sym_kConstructor; sym_kDestructor;
   sym_kExports; sym_kFunction; sym_kInline; sym_kLabel; sym_kProcedure; sym_kResourcestring;
   sym_kThreadvar; sym_kType; sym_kUses; sym_kVar]].

(** State 2667. *)
Definition ts_parse_table_2667 : parse_row :=
  [ACTIONS 10594 [anon_sym_LBRACK; aux_sym_ppUsesBlock_token1]; ACTIONS 3 [sym__space];
   ACTIONS 5 [sym_ppDirective]; ACTIONS 3 [sym_comment]; ACTIONS 10594 [sym_identifier;
   sym_kDefault; sym_kNodefault; sym_kDispId; sym_kGeneric; sym_kOperator; sym_kPublic;
   sym_kStatic; sym_kVirtual; sym_kAbstract; sym_kDynamic; sym_kOverride; sym_kOverload;
   sym_kReintroduce; sym_kStdcall; sym_kCdecl; sym_kCppdecl; sym_kPascal; sym_kRegister;
   sym_kMwpascal; sym_kMessage; sym_kDeprecated; sym_kExperimental; sym_kPlatform;
   sym_kUnimplemented; sym_kCvar; sym_kExport; sym_kFar; sym_kNear; sym_kSafecall;
   sym_kAssembler; sym_kNostackframe; sym_kInterrupt; sym_kNoreturn; sym_kIocheck; sym_kLocal;
   sym_kHardfloat; sym_kSoftfloat; sym_kMs_abi_default; sym_kMs_abi_cdecl; sym_kSaveregisters;
   sym_kSysv_abi_default; sym_kSysv_abi_cdecl; sym_kVectorcall; sym_kVarargs; sym_kWinapi;
   sym_kAlias; sym_kAsm; sym_kBegin; sym_kClass; sym_kConst; sym_kConstructor; sym_kDestructor;
   sym_kExports; sym_kFunction; sym_kInline; sym_kLabel; sym_kProcedure; sym_kResourcestring;
   sym_kThreadvar; sym_kType; sym_kUses; sym_kVar]].

(** State 2668. *)
Definition ts_parse_table_2668 : parse_row :=
  [ACTIONS 10566 [anon_sym_LBRACK; aux_sym_ppUsesBlock_token1]; ACTIONS 3 [sym__space];
   ACTIONS 5 [sym_ppDirective]; ACTIONS 3 [sym_comment]; ACTIONS 10566 [sym_identifier;
   sym_kDefault; sym_kNodefault; sym_kDispId; sym_kGeneric; sym_kOperator; sym_kPublic;
   sym_kStatic; sym_kVirtual; sym_kAbstract; sym_kDynamic; sym_kOverride; sym_kOverload;
   sym_kReintroduce; sym_kStdcall; sym_kCdecl; sym_kCppdecl; sym_kPascal; sym_kRegister;
   sym_kMwpascal; sym_kMessage; sym_kDeprecated; sym_kExperimental; sym_kPlatform;
   sym_kUnimplemented; sym_kCvar; sym_kExport; sym_kFar; sym_kNear; sym_kSafecall;
   sym_kAssembler; sym_kNostackframe; sym_kInterrupt; sym_kNoreturn; sym_kIocheck; sym_kLocal;
   sym_kHardfloat; sym_kSoftfloat; sym_kMs_abi_default; sym_kMs_abi_cdecl; sym_kSaveregisters;
   sym_kSysv_abi_default; sym_kSysv_abi_cdecl; sym_kVectorcall; sym_kVarargs; sym_kWinapi;
   sym_kAlias; sym_kAsm; sym_kBegin; sym_kClass; sym_kConst; sym_kConstructor; sym_kDestructor;
   sym_kExports; sym_kFunction; sym_kInline; sym_kLabel; sym_kProcedure; sym_kResourcestring;
   sym_kThreadvar; sym_kType; sym_kUses; sym_kVar]].

(** State 2669. *)
Definition ts_parse_table_2669 : parse_row :=
  [ACTIONS 10566 [ts_builtin_sym_end; anon_sym_LBRACK; aux_sym_ppUsesBlock_token1];
   ACTIONS 3 [sym__space]; ACTIONS 5 [sym_ppDirective]; ACTIONS 3 [sym_comment];
   ACTIONS 10566 [sym_identifier; sym_kDefault; sym_kNodefault; sym_kDispId; sym_kGeneric;
   sym_kOperator; sym_kPublic; sym_kStatic; sym_kVirtual; sym_kAbstract; sym_kDynamic;
   sym_kOverride; sym_kOverload; sym_kReintroduce; sym_kStdcall; sym_kCdecl; sym_kCppdecl;
   sym_kPascal; sym_kRegister; sym_kMwpascal; sym_kMessage; sym_kDeprecated; sym_kExperimental;
   sym_kPlatform; sym_kUnimplemented; sym_kCvar; sym_kExport; sym_kFar; sym_kNear; sym_kSafecall;
   sym_kAssembler; sym_kNostackframe; sym_kInterrupt; sym_kNoreturn; sym_kIocheck; sym_kLocal;
   sym_kHardfloat; sym_kSoftfloat; sym_kMs_abi_default; sym_kMs_abi_cdecl; sym_kSaveregisters;
   sym_kSysv_abi_default; sym_kSysv_abi_cdecl; sym_kVectorcall; sym_kVarargs; sym_kWinapi;
   sym_kAlias; sym_kBegin; sym_kClass; sym_kConst; sym_kConstructor; sym_kDestructor;
   sym_kExports; sym_kFunction; sym_kInline; sym_kLabel; sym_kProcedure; sym_kResourcestring;
   sym_kThreadvar; sym_kType; sym_kUses; sym_kVar]].

(** State 2670. *)
Definition ts_parse_table_2670 : parse_row :=
  [ACTIONS 10796 [anon_sym_LBRACK; aux_sym_ppUsesBlock_token1]; ACTIONS 3 [sym__space];
   ACTIONS 5 [sym_ppDirective]; ACTIONS 3 [sym_comment]; ACTIONS 10796 [sym_identifier;
   sym_kDefault; sym_kNodefault; sym_kDispId; sym_kGeneric; sym_kOperator; sym_kPublic;
   sym_kStatic; sym_kVirtual; sym_kAbstract; sym_kDynamic; sym_kOverride; sym_kOverload;
   sym_kReintroduce; sym_kStdcall; sym_kCdecl; sym_kCppdecl; sym_kPascal; sym_kRegister;
   sym_kMwpascal; sym_kMessage; sym_kDeprecated; sym_kExperimental; sym_kPlatform;
   sym_kUnimplemented; sym_kCvar; sym_kExport; sym_kFar; sym_kNear; sym_kSafecall;
   sym_kAssembler; sym_kNostackframe; sym_kInterrupt; sym_kNoreturn; sym_kIocheck; sym_kLocal;
   sym_kHardfloat; sym_kSoftfloat; sym_kMs_abi_default; sym_kMs_abi_cdecl; sym_kSaveregisters;
   sym_kSysv_abi_default; sym_kSysv_abi_cdecl; sym_kVectorcall; sym_kVarargs; sym_kWinapi;
   sym_kAlias; sym_kAsm; sym_kBegin; sym_kClass; sym_kConst; sym_kConstructor; sym_kDestructor;
   sym_kExports; sym_kFunction; sym_kInline; sym_kLabel; sym_kProcedure; sym_kResourcestring;
   sym_kThreadvar; sym_kType; sym_kUses; sym_kVar]].

(** State 2671. *)
Definition ts_parse_table_2671 : parse_row :=
  [ACTIONS 10576 [anon_sym_LBRACK; aux_sym_ppUsesBlock_token1]; ACTIONS 3 [sym__space];
   ACTIONS 5 [sym_ppDirective]; ACTIONS 3 [sym_comment]; ACTIONS 10576 [sym_identifier;
   sym_kDefault; sym_kNodefault; sym_kDispId; sym_kGeneric; sym_kOperator; sym_kPublic;
   sym_kStatic; sym_kVirtual; sym_kAbstract; sym_kDynamic; sym_kOverride; sym_kOverload;
   sym_kReintroduce; sym_kStdcall; sym_kCdecl; sym_kCppdecl; sym_kPascal; sym_kRegister;
   sym_kMwpascal; sym_kMessage; sym_kDeprecated; sym_kExperimental; sym_kPlatform;
   sym_kUnimplemented; sym_kCvar; sym_kExport; sym_kFar; sym_kNear; sym_kSafecall;
   sym_kAssembler; sym_kNostackframe; sym_kInterrupt; sym_kNoreturn; sym_kIocheck; sym_kLocal;
   sym_kHardfloat; sym_kSoftfloat; sym_kMs_abi_default; sym_kMs_abi_cdecl; sym_kSaveregisters;
   sym_kSysv_abi_default; sym_kSysv_abi_cdecl; sym_kVectorcall; sym_kVarargs; sym_kWinapi;
   sym_kAlias; sym_kBegin; sym_kClass; sym_kConst; sym_kConstructor; sym_kDestructor; sym_kEnd;
   sym_kExports; sym_kFunction; sym_kInline; sym_kLabel; sym_kProcedure; sym_kResourcestring;
   sym_kThreadvar; sym_kType; sym_kUses; sym_kVar]].

(** State 2672. *)
Definition ts_parse_table_2672 : parse_row :=
  [ACTIONS 10576 [ts_builtin_sym_end; anon_sym_LBRACK; aux_sym_ppUsesBlock_token1];
   ACTIONS 3 [sym__space]; ACTIONS 5 [sym_ppDirective]; ACTIONS 3 [sym_comment];
   ACTIONS 10576 [sym_identifier; sym_kDefault; sym_kNodefault; sym_kDispId; sym_kGeneric;
   sym_kOperator; sym_kPublic; sym_kStatic; sym_kVirtual; sym_kAbstract; sym_kDynamic;
   sym_kOverride; sym_kOverload; sym_kReintroduce; sym_kStdcall; sym_kCdecl; sym_kCppdecl;
   sym_kPascal; sym_kRegister; sym_kMwpascal; sym_kMessage; sym_kDeprecated; sym_kExperimental;
   sym_kPlatform; sym_kUnimplemented; sym_kCvar; sym_kExport; sym_kFar; sym_kNear; sym_kSafecall;
   sym_kAssembler; sym_kNostackframe; sym_kInterrupt; sym_kNoreturn; sym_kIocheck; sym_kLocal;
   sym_kHardfloat; sym_kSoftfloat; sym_kMs_abi_default; sym_kMs_abi_cdecl; sym_kSaveregisters;
   sym_kSysv_abi_default; sym_kSysv_abi_cdecl; sym_kVectorcall; sym_kVarargs; sym_kWinapi;
   sym_kAlias; sym_kBegin; sym_kClass; sym_kConst; sym_kConstructor; sym_kDestructor;
   sym_kExports; sym_kFunction; sym_kInline; sym_kLabel; sym_kProcedure; sym_kResourcestring;
   sym_kThreadvar; sym_kType; sym_kUses; sym_kVar]].

(** State 2673. *)
Definition ts_parse_table_2673 : parse_row :=
  [ACTIONS 10594 [ts_builtin_sym_end; anon_sym_LBRACK; aux_sym_ppUsesBlock_token1];
   ACTIONS 3 [sym__space]; ACTIONS 5 [sym_ppDirective]; ACTIONS 3 [sym_comment];
   ACTIONS 10594 [sym_identifier; sym_kDefault; sym_kNodefault; sym_kDispId; sym_kGeneric;
   sym_kOperator; sym_kPublic; sym_kStatic; sym_kVirtual; sym_kAbstract; sym_kDynamic;
   sym_kOverride; sym_kOverload; sym_kReintroduce; sym_kStdcall; sym_kCdecl; sym_kCppdecl;
   sym_kPascal; sym_kRegister; sym_kMwpascal; sym_kMessage; sym_kDeprecated; sym_kExperimental;
   sym_kPlatform; sym_kUnimplemented; sym_kCvar; sym_kExport; sym_kFar; sym_kNear; sym_kSafecall;
   sym_kAssembler; sym_kNostackframe; sym_kInterrupt; sym_kNoreturn; sym_kIocheck; sym_kLocal;
   sym_kHardfloat; sym_kSoftfloat; sym_kMs_abi_default; sym_kMs_abi_cdecl; sym_kSaveregisters;
   sym_kSysv_abi_default; sym_kSysv_abi_cdecl; sym_kVectorcall; sym_kVarargs; sym_kWinapi;
   sym_kAlias; sym_kBegin; sym_kClass; sym_kConst; sym_kConstructor; sym_kDestructor;
   sym_kExports; sym_kFunction; sym_kInline; sym_kLabel; sym_kProcedure; sym_kResourcestring;
   sym_kThreadvar; sym_kType; sym_kUses; sym_kVar]].

(** State 2674. *)
Definition ts_parse_table_2674 : parse_row :=
  [ACTIONS 10590 [anon_sym_LBRACK; aux_sym_ppUsesBlock_token1]; ACTIONS 3 [sym__space];
   ACTIONS 5 [sym_ppDirective]; ACTIONS 3 [sym_comment]; ACTIONS 10590 [sym_identifier;
   sym_kDefault; sym_kNodefault; sym_kDispId; sym_kGeneric; sym_kOperator; sym_kPublic;
   sym_kStatic; sym_kVirtual; sym_kAbstract; sym_kDynamic; sym_kOverride; sym_kOverload;
   sym_kReintroduce; sym_kStdcall; sym_kCdecl; sym_kCppdecl; sym_kPascal; sym_kRegister;
   sym_kMwpascal; sym_kMessage; sym_kDeprecated; sym_kExperimental; sym_kPlatform;
   sym_kUnimplemented; sym_kCvar; sym_kExport; sym_kFar; sym_kNear; sym_kSafecall;
   sym_kAssembler; sym_kNostackframe; sym_kInterrupt; sym_kNoreturn; sym_kIocheck; sym_kLocal;
   sym_kHardfloat; sym_kSoftfloat; sym_kMs_abi_default; sym_kMs_abi_cdecl; sym_kSaveregisters;
   sym_kSysv_abi_default; sym_kSysv_abi_cdecl; sym_kVectorcall; sym_kVarargs; sym_kWinapi;
   sym_kAlias; sym_kAsm; sym_kBegin; sym_kClass; sym_kConst; sym_kConstructor; sym_kDestructor;
   sym_kExports; sym_kFunction; sym_kInline; sym_kLabel; sym_kProcedure; sym_kResourcestring;
   sym_kThreadvar; sym_kType; sym_kUses; sym_kVar]].

(** State 2675. *)
Definition ts_parse_table_2675 : parse_row :=
  [ACTIONS 10590 [anon_sym_LBRACK; aux_sym_ppUsesBlock_token1]; ACTIONS 3 [sym__space];
   ACTIONS 5 [sym_ppDirective]; ACTIONS 3 [sym_comment]; ACTIONS 10590 [sym_identifier;
   sym_kDefault; sym_kNodefault; sym_kDispId; sym_kGeneric; sym_kOperator; sym_kPublic;
   sym_kStatic; sym_kVirtual; sym_kAbstract; sym_kDynamic; sym_kOverride; sym_kOverload;
   sym_kReintroduce; sym_kStdcall; sym_kCdecl; sym_kCppdecl; sym_kPascal; sym_kRegister;
   sym_kMwpascal; sym_kMessage; sym_kDeprecated; sym_kExperimental; sym_kPlatform;
   sym_kUnimplemented; sym_kCvar; sym_kExport; sym_kFar; sym_kNear; sym_kSafecall;
   sym_kAssembler; sym_kNostackframe; sym_kInterrupt; sym_kNoreturn; sym_kIocheck; sym_kLocal;
   sym_kHardfloat; sym_kSoftfloat; sym_kMs_abi_default; sym_kMs_abi_cdecl; sym_kSaveregisters;
   sym_kSysv_abi_default; sym_kSysv_abi_cdecl; sym_kVectorcall; sym_kVarargs; sym_kWinapi;
   sym_kAlias; sym_kBegin; sym_kClass; sym_kConst; sym_kConstructor; sym_kDestructor; sym_kEnd;
   sym_kExports; sym_kFunction; sym_kInline; sym_kLabel; sym_kProcedure; sym_kResourcestring;
   sym_kThreadvar; sym_kType; sym_kUses; sym_kVar]].

(** State 2676. *)
Definition ts_parse_table_2676 : parse_row :=
  [ACTIONS 10576 [anon_sym_LBRACK; aux_sym_ppUsesBlock_token1]; ACTIONS 3 [sym__space];
   ACTIONS 5 [sym_ppDirective]; ACTIONS 3 [sym_comment]; ACTIONS 10576 [sym_identifier;
   sym_kDefault; sym_kNodefault; sym_kDispId; sym_kGeneric; sym_kOperator; sym_kPublic;
   sym_kStatic; sym_kVirtual; sym_kAbstract; sym_kDynamic; sym_kOverride; sym_kOverload;
   sym_kReintroduce; sym_kStdcall; sym_kCdecl; sym_kCppdecl; sym_kPascal; sym_kRegister;
   sym_kMwpascal; sym_kMessage; sym_kDeprecated; sym_kExperimental; sym_kPlatform;
   sym_kUnimplemented; sym_kCvar; sym_kExport; sym_kFar; sym_kNear; sym_kSafecall;
   sym_kAssembler; sym_kNostackframe; sym_kInterrupt; sym_kNoreturn; sym_kIocheck; sym_kLocal;
   sym_kHardfloat; sym_kSoftfloat; sym_kMs_abi_default; sym_kMs_abi_cdecl; sym_kSaveregisters;
   sym_kSysv_abi_default; sym_kSysv_abi_cdecl; sym_kVectorcall; sym_kVarargs; sym_kWinapi;
   sym_kAlias; sym_kAsm; sym_kBegin; sym_kClass; sym_kConst; sym_kConstructor; sym_kDestructor;
   sym_kExports; sym_kFunction; sym_kInline; sym_kLabel; sym_kProcedure; sym_kResourcestring;
   sym_kThreadvar; sym_kType; sym_kUses; sym_kVar]].

(** State 2677. *)
Definition ts_parse_table_2677 : parse_row :=
  [ACTIONS 10594 [anon_sym_LBRACK; aux_sym_ppUsesBlock_token1]; ACTIONS 3 [sym__space];
   ACTIONS 5 [sym_ppDirective]; ACTIONS 3 [sym_comment]; ACTIONS 10594 [sym_identifier;
   sym_kDefault; sym_kNodefault; sym_kDispId; sym_kGeneric; sym_kOperator; sym_kPublic;
   sym_kStatic; sym_kVirtual; sym_kAbstract; sym_kDynamic; sym_kOverride; sym_kOverload;
   sym_kReintroduce; sym_kStdcall; sym_kCdecl; sym_kCppdecl; sym_kPascal; sym_kRegister;
   sym_kMwpascal; sym_kMessage; sym_kDeprecated; sym_kExperimental; sym_kPlatform;
   sym_kUnimplemented; sym_kCvar; sym_kExport; sym_kFar; sym_kNear; sym_kSafecall;
   sym_kAssembler; sym_kNostackframe; sym_kInterrupt; sym_kNoreturn; sym_kIocheck; sym_kLocal;
   sym_kHardfloat; sym_kSoftfloat; sym_kMs_abi_default; sym_kMs_abi_cdecl; sym_kSaveregisters;
   sym_kSysv_abi_default; sym_kSysv_abi_cdecl; sym_kVectorcall; sym_kVarargs; sym_kWinapi;
   sym_kAlias; sym_kBegin; sym_kClass; sym_kConst; sym_kConstructor; sym_kDestructor; sym_kEnd;
   sym_kExports; sym_kFunction; sym_kInline; sym_kLabel; sym_kProcedure; sym_kResourcestring;
   sym_kThreadvar; sym_kType; sym_kUses; sym_kVar]].

(** State 2678. *)
Definition ts_parse_table_2678 : parse_row :=
  [ACTIONS 10594 [anon_sym_LBRACK; aux_sym_ppUsesBlock_token1]; ACTIONS 3 [sym__space];
   ACTIONS 5 [sym_ppDirective]; ACTIONS 3 [sym_comment]; ACTIONS 10594 [sym_identifier;
   sym_kDefault; sym_kNodefault; sym_kDispId; sym_kGeneric; sym_kOperator; sym_kPublic;
   sym_kStatic; sym_kVirtual; sym_kAbstract; sym_kDynamic; sym_kOverride; sym_kOverload;
   sym_kReintroduce; sym_kStdcall; sym_kCdecl; sym_kCppdecl; sym_kPascal; sym_kRegister;
   sym_kMwpascal; sym_kMessage; sym_kDeprecated; sym_kExperimental; sym_kPlatform;
   sym_kUnimplemented; sym_kCvar; sym_kExport; sym_kFar; sym_kNear; sym_kSafecall;
   sym_kAssembler; sym_kNostackframe; sym_kInterrupt; sym_kNoreturn; sym_kIocheck; sym_kLocal;
   sym_kHardfloat; sym_kSoftfloat; sym_kMs_abi_default; sym_kMs_abi_cdecl; sym_kSaveregisters;
   sym_kSysv_abi_default; sym_kSysv_abi_cdecl; sym_kVectorcall; sym_kVarargs; sym_kWinapi;
   sym_kAlias; sym_kBegin; sym_kClass; sym_kConst; sym_kConstructor; sym_kDestructor; sym_kEnd;
   sym_kExports; sym_kFunction; sym_kInline; sym_kLabel; sym_kProcedure; sym_kResourcestring;
   sym_kThreadvar; sym_kType; sym_kUses; sym_kVar]].

(** State 2679. *)
Definition ts_parse_table_2679 : parse_row :=
  [ACTIONS 10622 [anon_sym_LBRACK; aux_sym_ppUsesBlock_token1]; ACTIONS 3 [sym__space];
   ACTIONS 5 [sym_ppDirective]; ACTIONS 3 [sym_comment]; ACTIONS 10622 [sym_kDefault;
   sym_kNodefault; sym_kDispId; sym_kGeneric; sym_kOperator; sym_kPublic; sym_kStatic;
   sym_kVirtual; sym_kAbstract; sym_kDynamic; sym_kOverride; sym_kOverload; sym_kReintroduce;
   sym_kStdcall; sym_kCdecl; sym_kCppdecl; sym_kPascal; sym_kRegister; sym_kMwpascal;
   sym_kMessage; sym_kDeprecated; sym_kExperimental; sym_kPlatform; sym_kUnimplemented;
   sym_kCvar; sym_kExport; sym_kFar; sym_kNear; sym_kSafecall; sym_kAssembler; sym_kNostackframe;
   sym_kInterrupt; sym_kNoreturn; sym_kIocheck; sym_kLocal; sym_kHardfloat; sym_kSoftfloat;
   sym_kMs_abi_default; sym_kMs_abi_cdecl; sym_kSaveregisters; sym_kSysv_abi_default;
   sym_kSysv_abi_cdecl; sym_kVectorcall; sym_kVarargs; sym_kWinapi; sym_kAlias; sym_kAsm;
   sym_kBegin; sym_kClass; sym_kConst; sym_kConstructor; sym_kDestructor; sym_kExports;
   sym_kFunction; sym_kInline; sym_kLabel; sym_kProcedure; sym_kResourcestring; sym_kThreadvar;
   sym_kType; sym_kUses; sym_kVar]].

(** State 2680. *)
Definition ts_parse_table_2680 : parse_row :=
  [ACTIONS 11049 [anon_sym_LBRACK; aux_sym_ppUsesBlock_token1]; ACTIONS 3 [sym__space];
   ACTIONS 5 [sym_ppDirective]; ACTIONS 3 [sym_comment]; ACTIONS 11049 [sym_identifier;
   sym_kDefault; sym_kNodefault; sym_kDispId; sym_kGeneric; sym_kOperator; sym_kPublic;
   sym_kStatic; sym_kVirtual; sym_kAbstract; sym_kDynamic; sym_kOverride; sym_kOverload;
   sym_kReintroduce; sym_kStdcall; sym_kCdecl; sym_kCppdecl; sym_kPascal; sym_kRegister;
   sym_kMwpascal; sym_kMessage; sym_kDeprecated; sym_kExperimental; sym_kPlatform;
   sym_kUnimplemented; sym_kCvar; sym_kExport; sym_kFar; sym_kNear; sym_kSafecall;
   sym_kAssembler; sym_kNostackframe; sym_kInterrupt; sym_kNoreturn; sym_kIocheck; sym_kLocal;
   sym_kHardfloat; sym_kSoftfloat; sym_kMs_abi_default; sym_kMs_abi_cdecl; sym_kSaveregisters;
   sym_kSysv_abi_default; sym_kSysv_abi_cdecl; sym_kVectorcall; sym_kVarargs; sym_kWinapi;
   sym_kAlias; sym_kAsm; sym_kBegin; sym_kClass; sym_kConst; sym_kConstructor; sym_kDestructor;
   sym_kExports; sym_kFunction; sym_kLabel; sym_kProcedure; sym_kResourcestring; sym_kThreadvar;
   sym_kType; sym_kUses; sym_kVar]].

(** State 2681. *)
Definition ts_parse_table_2681 : parse_row :=
  [ACTIONS 10630 [anon_sym_LBRACK; aux_sym_ppUsesBlock_token1]; ACTIONS 3 [sym__space];
   ACTIONS 5 [sym_ppDirective]; ACTIONS 3 [sym_comment]; ACTIONS 10630 [sym_kDefault;
   sym_kNodefault; sym_kDispId; sym_kGeneric; sym_kOperator; sym_kPublic; sym_kStatic;
   sym_kVirtual; sym_kAbstract; sym_kDynamic; sym_kOverride; sym_kOverload; sym_kReintroduce;
   sym_kStdcall; sym_kCdecl; sym_kCppdecl; sym_kPascal; sym_kRegister; sym_kMwpascal;
   sym_kMessage; sym_kDeprecated; sym_kExperimental; sym_kPlatform; sym_kUnimplemented;
   sym_kCvar; sym_kExport; sym_kFar; sym_kNear; sym_kSafecall; sym_kAssembler; sym_kNostackframe;
   sym_kInterrupt; sym_kNoreturn; sym_kIocheck; sym_kLocal; sym_kHardfloat; sym_kSoftfloat;
   sym_kMs_abi_default; sym_kMs_abi_cdecl; sym_kSaveregisters; sym_kSysv_abi_default;
   sym_kSysv_abi_cdecl; sym_kVectorcall; sym_kVarargs; sym_kWinapi; sym_kAlias; sym_kAsm;
   sym_kBegin; sym_kClass; sym_kConst; sym_kConstructor; sym_kDestructor; sym_kExports;
   sym_kFunction; sym_kInline; sym_kLabel; sym_kProcedure; sym_kResourcestring; sym_kThreadvar;
   sym_kType; sym_kUses; sym_kVar]].

(** State 2682. *)
Definition ts_parse_table_2682 : parse_row :=
  [ACTIONS 11049 [ts_builtin_sym_end; anon_sym_LBRACK; aux_sym_ppUsesBlock_token1];
   ACTIONS 3 [sym__space]; ACTIONS 5 [sym_ppDirective]; ACTIONS 3 [sym_comment];
   ACTIONS 11049 [sym_identifier; sym_kDefault; sym_kNodefault; sym_kDispId; sym_kGeneric;
   sym_kOperator; sym_kPublic; sym_kStatic; sym_kVirtual; sym_kAbstract; sym_kDynamic;
   sym_kOverride; sym_kOverload; sym_kReintroduce; sym_kStdcall; sym_kCdecl; sym_kCppdecl;
   sym_kPascal; sym_kRegister; sym_kMwpascal; sym_kMessage; sym_kDeprecated; sym_kExperimental;
   sym_kPlatform; sym_kUnimplemented; sym_kCvar; sym_kExport; sym_kFar; sym_kNear; sym_kSafecall;
   sym_kAssembler; sym_kNostackframe; sym_kInterrupt; sym_kNoreturn; sym_kIocheck; sym_kLocal;
   sym_kHardfloat; sym_kSoftfloat; sym_kMs_abi_default; sym_kMs_abi_cdecl; sym_kSaveregisters;
   sym_kSysv_abi_default; sym_kSysv_abi_cdecl; sym_kVectorcall; sym_kVarargs; sym_kWinapi;
   sym_kAlias; sym_kBegin; sym_kClass; sym_kConst; sym_kConstructor; sym_kDestructor;
   sym_kExports; sym_kFunction; sym_kLabel; sym_kProcedure; sym_kResourcestring; sym_kThreadvar;
   sym_kType; sym_kUses; sym_kVar]].

(** State 2683. *)
Definition ts_parse_table_2683 : parse_row :=
  [ACTIONS 10634 [ts_builtin_sym_end; anon_sym_LBRACK; aux_sym_ppUsesBlock_token1];
   ACTIONS 3 [sym__space]; ACTIONS 5 [sym_ppDirective]; ACTIONS 3 [sym_comment];
   ACTIONS 10634 [sym_kDefault; sym_kNodefault; sym_kDispId; sym_kGeneric; sym_kOperator;
   sym_kPublic; sym_kStatic; sym_kVirtual; sym_kAbstract; sym_kDynamic; sym_kOverride;
   sym_kOverload; sym_kReintroduce; sym_kStdcall; sym_kCdecl; sym_kCppdecl; sym_kPascal;
   sym_kRegister; sym_kMwpascal; sym_kMessage; sym_kDeprecated; sym_kExperimental; sym_kPlatform;
   sym_kUnimplemented; sym_kCvar; sym_kExport; sym_kFar; sym_kNear; sym_kSafecall;
   sym_kAssembler; sym_kNostackframe; sym_kInterrupt; sym_kNoreturn; sym_kIocheck; sym_kLocal;
   sym_kHardfloat; sym_kSoftfloat; sym_kMs_abi_default; sym_kMs_abi_cdecl; sym_kSaveregisters;
   sym_kSysv_abi_default; sym_kSysv_abi_cdecl; sym_kVectorcall; sym_kVarargs; sym_kWinapi;
   sym_kAlias; sym_kBegin; sym_kClass; sym_kConst; sym_kConstructor; sym_kDestructor;
   sym_kExports; sym_kFunction; sym_kInline; sym_kLabel; sym_kProcedure; sym_kResourcestring;
   sym_kThreadvar; sym_kType; sym_kUses; sym_kVar]].

(** State 2684. *)
Definition ts_parse_table_2684 : parse_row :=
  [ACTIONS 10614 [anon_sym_LBRACK; aux_sym_ppUsesBlock_token1]; ACTIONS 3 [sym__space];
   ACTIONS 5 [sym_ppDirective]; ACTIONS 3 [sym_comment]; ACTIONS 10614 [sym_kDefault;
   sym_kNodefault; sym_kDispId; sym_kGeneric; sym_kOperator; sym_kPublic; sym_kStatic;
   sym_kVirtual; sym_kAbstract; sym_kDynamic; sym_kOverride; sym_kOverload; sym_kReintroduce;
   sym_kStdcall; sym_kCdecl; sym_kCppdecl; sym_kPascal; sym_kRegister; sym_kMwpascal;
   sym_kMessage; sym_kDeprecated; sym_kExperimental; sym_kPlatform; sym_kUnimplemented;
   sym_kCvar; sym_kExport; sym_kFar; sym_kNear; sym_kSafecall; sym_kAssembler; sym_kNostackframe;
   sym_kInterrupt; sym_kNoreturn; sym_kIocheck; sym_kLocal; sym_kHardfloat; sym_kSoftfloat;
   sym_kMs_abi_default; sym_kMs_abi_cdecl; sym_kSaveregisters; sym_kSysv_abi_default;
   sym_kSysv_abi_cdecl; sym_kVectorcall; sym_kVarargs; sym_kWinapi; sym_kAlias; sym_kAsm;
   sym_kBegin; sym_kClass; sym_kConst; sym_kConstructor; sym_kDestructor; sym_kExports;
   sym_kFunction; sym_kInline; sym_kLabel; sym_kProcedure; sym_kResourcestring; sym_kThreadvar;
   sym_kType; sym_kUses; sym_kVar]].

(** State 2685. *)
Definition ts_parse_table_2685 : parse_row :=
  [ACTIONS 10630 [anon_sym_LBRACK; aux_sym_ppUsesBlock_token1]; ACTIONS 3 [sym__space];
   ACTIONS 5 [sym_ppDirective]; ACTIONS 3 [sym_comment]; ACTIONS 10630 [sym_kDefault;
   sym_kNodefault; sym_kDispId; sym_kGeneric; sym_kOperator; sym_kPublic; sym_kStatic;
   sym_kVirtual; sym_kAbstract; sym_kDynamic; sym_kOverride; sym_kOverload; sym_kReintroduce;
   sym_kStdcall; sym_kCdecl; sym_kCppdecl; sym_kPascal; sym_kRegister; sym_kMwpascal;
   sym_kMessage; sym_kDeprecated; sym_kExperimental; sym_kPlatform; sym_kUnimplemented;
   sym_kCvar; sym_kExport; sym_kFar; sym_kNear; sym_kSafecall; sym_kAssembler; sym_kNostackframe;
   sym_kInterrupt; sym_kNoreturn; sym_kIocheck; sym_kLocal; sym_kHardfloat; sym_kSoftfloat;
   sym_kMs_abi_default; sym_kMs_abi_cdecl; sym_kSaveregisters; sym_kSysv_abi_default;
   sym_kSysv_abi_cdecl; sym_kVectorcall; sym_kVarargs; sym_kWinapi; sym_kAlias; sym_kBegin;
   sym_kClass; sym_kConst; sym_kConstructor; sym_kDestructor; sym_kEnd; sym_kExports;
   sym_kFunction; sym_kInline; sym_kLabel; sym_kProcedure; sym_kResourcestring; sym_kThreadvar;
   sym_kType; sym_kUses; sym_kVar]].

(** State 2686. *)
Definition ts_parse_table_2686 : parse_row :=
  [ACTIONS 10576 [anon_sym_LBRACK; aux_sym_ppUsesBlock_token1]; ACTIONS 3 [sym__space];
   ACTIONS 5 [sym_ppDirective]; ACTIONS 3 [sym_comment]; ACTIONS 10576 [sym_kDefault;
   sym_kNodefault; sym_kDispId; sym_kGeneric; sym_kOperator; sym_kPublic; sym_kStatic;
   sym_kVirtual; sym_kAbstract; sym_kDynamic; sym_kOverride; sym_kOverload; sym_kReintroduce;
   sym_kStdcall; sym_kCdecl; sym_kCppdecl; sym_kPascal; sym_kRegister; sym_kMwpascal;
   sym_kMessage; sym_kDeprecated; sym_kExperimental; sym_kPlatform; sym_kUnimplemented;
   sym_kCvar; sym_kExport; sym_kFar; sym_kNear; sym_kSafecall; sym_kAssembler; sym_kNostackframe;
   sym_kInterrupt; sym_kNoreturn; sym_kIocheck; sym_kLocal; sym_kHardfloat; sym_kSoftfloat;
   sym_kMs_abi_default; sym_kMs_abi_cdecl; sym_kSaveregisters; sym_kSysv_abi_default;
   sym_kSysv_abi_cdecl; sym_kVectorcall; sym_kVarargs; sym_kWinapi; sym_kAlias; sym_kBegin;
   sym_kClass; sym_kConst; sym_kConstructor; sym_kDestructor; sym_kEnd; sym_kExports;
   sym_kFunction; sym_kInline; sym_kLabel; sym_kProcedure; sym_kResourcestring; sym_kThreadvar;
   sym_kType; sym_kUses; sym_kVar]].

(** State 2687. *)
Definition ts_parse_table_2687 : parse_row :=
  [ACTIONS 10796 [anon_sym_LBRACK; aux_sym_ppUsesBlock_token1]; ACTIONS 3 [sym__space];
   ACTIONS 5 [sym_ppDirective]; ACTIONS 3 [sym_comment]; ACTIONS 10796 [sym_kDefault;
   sym_kNodefault; sym_kDispId; sym_kGeneric; sym_kOperator; sym_kPublic; sym_kStatic;
   sym_kVirtual; sym_kAbstract; sym_kDynamic; sym_kOverride; sym_kOverload; sym_kReintroduce;
   sym_kStdcall; sym_kCdecl; sym_kCppdecl; sym_kPascal; sym_kRegister; sym_kMwpascal;
   sym_kMessage; sym_kDeprecated; sym_kExperimental; sym_kPlatform; sym_kUnimplemented;
   sym_kCvar; sym_kExport; sym_kFar; sym_kNear; sym_kSafecall; sym_kAssembler; sym_kNostackframe;
   sym_kInterrupt; sym_kNoreturn; sym_kIocheck; sym_kLocal; sym_kHardfloat; sym_kSoftfloat;
   sym_kMs_abi_default; sym_kMs_abi_cdecl; sym_kSaveregisters; sym_kSysv_abi_default;
   sym_kSysv_abi_cdecl; sym_kVectorcall; sym_kVarargs; sym_kWinapi; sym_kAlias; sym_kAsm;
   sym_kBegin; sym_kClass; sym_kConst; sym_kConstructor; sym_kDestructor; sym_kExports;
   sym_kFunction; sym_kInline; sym_kLabel; sym_kProcedure; sym_kResourcestring; sym_kThreadvar;
   sym_kType; sym_kUses; sym_kVar]].

(** State 2688. *)
Definition ts_parse_table_2688 : parse_row :=
  [ACTIONS 10590 [anon_sym_LBRACK; aux_sym_ppUsesBlock_token1]; ACTIONS 3 [sym__space];
   ACTIONS 5 [sym_ppDirective]; ACTIONS 3 [sym_comment]; ACTIONS 10590 [sym_kDefault;
   sym_kNodefault; sym_kDispId; sym_kGeneric; sym_kOperator; sym_kPublic; sym_kStatic;
   sym_kVirtual; sym_kAbstract; sym_kDynamic; sym_kOverride; sym_kOverload; sym_kReintroduce;
   sym_kStdcall; sym_kCdecl; sym_kCppdecl; sym_kPascal; sym_kRegister; sym_kMwpascal;
   sym_kMessage; sym_kDeprecated; sym_kExperimental; sym_kPlatform; sym_kUnimplemented;
   sym_kCvar; sym_kExport; sym_kFar; sym_kNear; sym_kSafecall; sym_kAssembler; sym_kNostackframe;
   sym_kInterrupt; sym_kNoreturn; sym_kIocheck; sym_kLocal; sym_kHardfloat; sym_kSoftfloat;
   sym_kMs_abi_default; sym_kMs_abi_cdecl; sym_kSaveregisters; sym_kSysv_abi_default;
   sym_kSysv_abi_cdecl; sym_kVectorcall; sym_kVarargs; sym_kWinapi; sym_kAlias; sym_kAsm;
   sym_kBegin; sym_kClass; sym_kConst; sym_kConstructor; sym_kDestructor; sym_kExports;
   sym_kFunction; sym_kInline; sym_kLabel; sym_kProcedure; sym_kResourcestring; sym_kThreadvar;
   sym_kType; sym_kUses; sym_kVar]].

(** State 2689. *)
Definition ts_parse_table_2689 : parse_row :=
  [ACTIONS 10638 [anon_sym_LBRACK; aux_sym_ppUsesBlock_token1]; ACTIONS 3 [sym__space];
   ACTIONS 5 [sym_ppDirective]; ACTIONS 3 [sym_comment]; ACTIONS 10638 [sym_kDefault;
   sym_kNodefault; sym_kDispId; sym_kGeneric; sym_kOperator; sym_kPublic; sym_kStatic;
   sym_kVirtual; sym_kAbstract; sym_kDynamic; sym_kOverride; sym_kOverload; sym_kReintroduce;
   sym_kStdcall; sym_kCdecl; sym_kCppdecl; sym_kPascal; sym_kRegister; sym_kMwpascal;
   sym_kMessage; sym_kDeprecated; sym_kExperimental; sym_kPlatform; sym_kUnimplemented;
   sym_kCvar; sym_kExport; sym_kFar; sym_kNear; sym_kSafecall; sym_kAssembler; sym_kNostackframe;
   sym_kInterrupt; sym_kNoreturn; sym_kIocheck; sym_kLocal; sym_kHardfloat; sym_kSoftfloat;
   sym_kMs_abi_default; sym_kMs_abi_cdecl; sym_kSaveregisters; sym_kSysv_abi_default;
   sym_kSysv_abi_cdecl; sym_kVectorcall; sym_kVarargs; sym_kWinapi; sym_kAlias; sym_kAsm;
   sym_kBegin; sym_kClass; sym_kConst; sym_kConstructor; sym_kDestructor; sym_kExports;
   sym_kFunction; sym_kInline; sym_kLabel; sym_kProcedure; sym_kResourcestring; sym_kThreadvar;
   sym_kType; sym_kUses; sym_kVar]].

(** State 2690. *)
Definition ts_parse_table_2690 : parse_row :=
  [ACTIONS 9842 [anon_sym_LBRACK; aux_sym_ppUsesBlock_token1]; ACTIONS 3 [sym__space];
   ACTIONS 5 [sym_ppDirective]; ACTIONS 3 [sym_comment]; ACTIONS 9842 [sym_kDefault;
   sym_kNodefault; sym_kDispId; sym_kGeneric; sym_kOperator; sym_kPublic; sym_kStatic;
   sym_kVirtual; sym_kAbstract; sym_kDynamic; sym_kOverride; sym_kOverload; sym_kReintroduce;
   sym_kStdcall; sym_kCdecl; sym_kCppdecl; sym_kPascal; sym_kRegister; sym_kMwpascal;
   sym_kMessage; sym_kDeprecated; sym_kExperimental; sym_kPlatform; sym_kUnimplemented;
   sym_kCvar; sym_kExport; sym_kFar; sym_kNear; sym_kSafecall; sym_kAssembler; sym_kNostackframe;
   sym_kInterrupt; sym_kNoreturn; sym_kIocheck; sym_kLocal; sym_kHardfloat; sym_kSoftfloat;
   sym_kMs_abi_default; sym_kMs_abi_cdecl; sym_kSaveregisters; sym_kSysv_abi_default;
   sym_kSysv_abi_cdecl; sym_kVectorcall; sym_kVarargs; sym_kWinapi; sym_kAlias; sym_kAsm;
   sym_kBegin; sym_kClass; sym_kConst; sym_kConstructor; sym_kDestructor; sym_kExports;
   sym_kFunction; sym_kInline; sym_kLabel; sym_kProcedure; sym_kResourcestring; sym_kThreadvar;
   sym_kType; sym_kUses; sym_kVar]].

(** State 2691. *)
Definition ts_parse_table_2691 : parse_row :=
  [ACTIONS 10594 [anon_sym_LBRACK; aux_sym_ppUsesBlock_token1]; ACTIONS 3 [sym__space];
   ACTIONS 5 [sym_ppDirective]; ACTIONS 3 [sym_comment]; ACTIONS 10594 [sym_kDefault;
   sym_kNodefault; sym_kDispId; sym_kGeneric; sym_kOperator; sym_kPublic; sym_kStatic;
   sym_kVirtual; sym_kAbstract; sym_kDynamic; sym_kOverride; sym_kOverload; sym_kReintroduce;
   sym_kStdcall; sym_kCdecl; sym_kCppdecl; sym_kPascal; sym_kRegister; sym_kMwpascal;
   sym_kMessage; sym_kDeprecated; sym_kExperimental; sym_kPlatform; sym_kUnimplemented;
   sym_kCvar; sym_kExport; sym_kFar; sym_kNear; sym_kSafecall; sym_kAssembler; sym_kNostackframe;
   sym_kInterrupt; sym_kNoreturn; sym_kIocheck; sym_kLocal; sym_kHardfloat; sym_kSoftfloat;
   sym_kMs_abi_default; sym_kMs_abi_cdecl; sym_kSaveregisters; sym_kSysv_abi_default;
   sym_kSysv_abi_cdecl; sym_kVectorcall; sym_kVarargs; sym_kWinapi; sym_kAlias; sym_kAsm;
   sym_kBegin; sym_kClass; sym_kConst; sym_kConstructor; sym_kDestructor; sym_kExports;
   sym_kFunction; sym_kInline; sym_kLabel; sym_kProcedure; sym_kResourcestring; sym_kThreadvar;
   sym_kType; sym_kUses; sym_kVar]].

(** State 2692. *)
Definition ts_parse_table_2692 : parse_row :=
  [ACTIONS 9946 [anon_sym_LBRACK; aux_sym_ppUsesBlock_token1]; ACTIONS 3 [sym__space];
   ACTIONS 5 [sym_ppDirective]; ACTIONS 3 [sym_comment]; ACTIONS 9946 [sym_kDefault;
   sym_kNodefault; sym_kDispId; sym_kGeneric; sym_kOperator; sym_kPublic; sym_kStatic;
   sym_kVirtual; sym_kAbstract; sym_kDynamic; sym_kOverride; sym_kOverload; sym_kReintroduce;
   sym_kStdcall; sym_kCdecl; sym_kCppdecl; sym_kPascal; sym_kRegister; sym_kMwpascal;
   sym_kMessage; sym_kDeprecated; sym_kExperimental; sym_kPlatform; sym_kUnimplemented;
   sym_kCvar; sym_kExport; sym_kFar; sym_kNear; sym_kSafecall; sym_kAssembler; sym_kNostackframe;
   sym_kInterrupt; sym_kNoreturn; sym_kIocheck; sym_kLocal; sym_kHardfloat; sym_kSoftfloat;
   sym_kMs_abi_default; sym_kMs_abi_cdecl; sym_kSaveregisters; sym_kSysv_abi_default;
   sym_kSysv_abi_cdecl; sym_kVectorcall; sym_kVarargs; sym_kWinapi; sym_kAlias; sym_kAsm;
   sym_kBegin; sym_kClass; sym_kConst; sym_kConstructor; sym_kDestructor; sym_kExports;
   sym_kFunction; sym_kInline; sym_kLabel; sym_kProcedure; sym_kResourcestring; sym_kThreadvar;
   sym_kType; sym_kUses; sym_kVar]].

(** State 2693. *)
Definition ts_parse_table_2693 : parse_row :=
  [ACTIONS 10634 [anon_sym_LBRACK; aux_sym_ppUsesBlock_token1]; ACTIONS 3 [sym__space];
   ACTIONS 5 [sym_ppDirective]; ACTIONS 3 [sym_comment]; ACTIONS 10634 [sym_kDefault;
   sym_kNodefault; sym_kDispId; sym_kGeneric; sym_kOperator; sym_kPublic; sym_kStatic;
   sym_kVirtual; sym_kAbstract; sym_kDynamic; sym_kOverride; sym_kOverload; sym_kReintroduce;
   sym_kStdcall; sym_kCdecl; sym_kCppdecl; sym_kPascal; sym_kRegister; sym_kMwpascal;
   sym_kMessage; sym_kDeprecated; sym_kExperimental; sym_kPlatform; sym_kUnimplemented;
   sym_kCvar; sym_kExport; sym_kFar; sym_kNear; sym_kSafecall; sym_kAssembler; sym_kNostackframe;
   sym_kInterrupt; sym_kNoreturn; sym_kIocheck; sym_kLocal; sym_kHardfloat; sym_kSoftfloat;
   sym_kMs_abi_default; sym_kMs_abi_cdecl; sym_kSaveregisters; sym_kSysv_abi_default;
   sym_kSysv_abi_cdecl; sym_kVectorcall; sym_kVarargs; sym_kWinapi; sym_kAlias; sym_kBegin;
   sym_kClass; sym_kConst; sym_kConstructor; sym_kDestructor; sym_kEnd; sym_kExports;
   sym_kFunction; sym_kInline; sym_kLabel; sym_kProcedure; sym_kResourcestring; sym_kThreadvar;
   sym_kType; sym_kUses; sym_kVar]].

(** State 2694. *)
Definition ts_parse_table_2694 : parse_row :=
  [ACTIONS 10590 [anon_sym_LBRACK; aux_sym_ppUsesBlock_token1]; ACTIONS 3 [sym__space];
   ACTIONS 5 [sym_ppDirective]; ACTIONS 3 [sym_comment]; ACTIONS 10590 [sym_kDefault;
   sym_kNodefault; sym_kDispId; sym_kGeneric; sym_kOperator; sym_kPublic; sym_kStatic;
   sym_kVirtual; sym_kAbstract; sym_kDynamic; sym_kOverride; sym_kOverload; sym_kReintroduce;
   sym_kStdcall; sym_kCdecl; sym_kCppdecl; sym_kPascal; sym_kRegister; sym_kMwpascal;
   sym_kMessage; sym_kDeprecated; sym_kExperimental; sym_kPlatform; sym_kUnimplemented;
   sym_kCvar; sym_kExport; sym_kFar; sym_kNear; sym_kSafecall; sym_kAssembler; sym_kNostackframe;
   sym_kInterrupt; sym_kNoreturn; sym_kIocheck; sym_kLocal; sym_kHardfloat; sym_kSoftfloat;
   sym_kMs_abi_default; sym_kMs_abi_cdecl; sym_kSaveregisters; sym_kSysv_abi_default;
   sym_kSysv_abi_cdecl; sym_kVectorcall; sym_kVarargs; sym_kWinapi; sym_kAlias; sym_kBegin;
   sym_kClass; sym_kConst; sym_kConstructor; sym_kDestructor; sym_kEnd; sym_kExports;
   sym_kFunction; sym_kInline; sym_kLabel; sym_kProcedure; sym_kResourcestring; sym_kThreadvar;
   sym_kType; sym_kUses; sym_kVar]].

(** State 2695. *)
Definition ts_parse_table_2695 : parse_row :=
  [ACTIONS 10576 [anon_sym_LBRACK; aux_sym_ppUsesBlock_token1]; ACTIONS 3 [sym__space];
   ACTIONS 5 [sym_ppDirective]; ACTIONS 3 [sym_comment]; ACTIONS 10576 [sym_kDefault;
   sym_kNodefault; sym_kDispId; sym_kGeneric; sym_kOperator; sym_kPublic; sym_kStatic;
   sym_kVirtual; sym_kAbstract; sym_kDynamic; sym_kOverride; sym_kOverload; sym_kReintroduce;
   sym_kStdcall; sym_kCdecl; sym_kCppdecl; sym_kPascal; sym_kRegister; sym_kMwpascal;
   sym_kMessage; sym_kDeprecated; sym_kExperimental; sym_kPlatform; sym_kUnimplemented;
   sym_kCvar; sym_kExport; sym_kFar; sym_kNear; sym_kSafecall; sym_kAssembler; sym_kNostackframe;
   sym_kInterrupt; sym_kNoreturn; sym_kIocheck; sym_kLocal; sym_kHardfloat; sym_kSoftfloat;
   sym_kMs_abi_default; sym_kMs_abi_cdecl; sym_kSaveregisters; sym_kSysv_abi_default;
   sym_kSysv_abi_cdecl; sym_kVectorcall; sym_kVarargs; sym_kWinapi; sym_kAlias; sym_kAsm;
   sym_kBegin; sym_kClass; sym_kConst; sym_kConstructor; sym_kDestructor; sym_kExports;
   sym_kFunction; sym_kInline; sym_kLabel; sym_kProcedure; sym_kResourcestring; sym_kThreadvar;
   sym_kType; sym_kUses; sym_kVar]].

(** State 2696. *)
Definition ts_parse_table_2696 : parse_row :=
  [ACTIONS 9810 [anon_sym_LBRACK; aux_sym_ppUsesBlock_token1]; ACTIONS 3 [sym__space];
   ACTIONS 5 [sym_ppDirective]; ACTIONS 3 [sym_comment]; ACTIONS 9810 [sym_identifier;
   sym_kDefault; sym_kNodefault; sym_kDispId; sym_kGeneric; sym_kOperator; sym_kPublic;
   sym_kStatic; sym_kVirtual; sym_kAbstract; sym_kDynamic; sym_kOverride; sym_kOverload;
   sym_kReintroduce; sym_kStdcall; sym_kCdecl; sym_kCppdecl; sym_kPascal; sym_kRegister;
   sym_kMwpascal; sym_kMessage; sym_kDeprecated; sym_kExperimental; sym_kPlatform;
   sym_kUnimplemented; sym_kCvar; sym_kExport; sym_kFar; sym_kNear; sym_kSafecall;
   sym_kAssembler; sym_kNostackframe; sym_kInterrupt; sym_kNoreturn; sym_kIocheck; sym_kLocal;
   sym_kHardfloat; sym_kSoftfloat; sym_kMs_abi_default; sym_kMs_abi_cdecl; sym_kSaveregisters;
   sym_kSysv_abi_default; sym_kSysv_abi_cdecl; sym_kVectorcall; sym_kVarargs; sym_kWinapi;
   sym_kAlias; sym_kBegin; sym_kClass; sym_kConst; sym_kConstructor; sym_kDestructor; sym_kEnd;
   sym_kExports; sym_kFunction; sym_kLabel; sym_kProcedure; sym_kResourcestring; sym_kThreadvar;
   sym_kType; sym_kUses; sym_kVar]].

(** State 2697. *)
Definition ts_parse_table_2697 : parse_row :=
  [ACTIONS 10932 [ts_builtin_sym_end; anon_sym_LBRACK; aux_sym_ppUsesBlock_token1];
   ACTIONS 3 [sym__space]; ACTIONS 5 [sym_ppDirective]; ACTIONS 3 [sym_comment];
   ACTIONS 10932 [sym_identifier; sym_kDefault; sym_kNodefault; sym_kDispId; sym_kGeneric;
   sym_kOperator; sym_kPublic; sym_kStatic; sym_kVirtual; sym_kAbstract; sym_kDynamic;
   sym_kOverride; sym_kOverload; sym_kReintroduce; sym_kStdcall; sym_kCdecl; sym_kCppdecl;
   sym_kPascal; sym_kRegister; sym_kMwpascal; sym_kMessage; sym_kDeprecated; sym_kExperimental;
   sym_kPlatform; sym_kUnimplemented; sym_kCvar; sym_kExport; sym_kFar; sym_kNear; sym_kSafecall;
   sym_kAssembler; sym_kNostackframe; sym_kInterrupt; sym_kNoreturn; sym_kIocheck; sym_kLocal;
   sym_kHardfloat; sym_kSoftfloat; sym_kMs_abi_default; sym_kMs_abi_cdecl; sym_kSaveregisters;
   sym_kSysv_abi_default; sym_kSysv_abi_cdecl; sym_kVectorcall; sym_kVarargs; sym_kWinapi;
   sym_kAlias; sym_kBegin; sym_kClass; sym_kConst; sym_kConstructor; sym_kDestructor;
   sym_kExports; sym_kFunction; sym_kLabel; sym_kProcedure; sym_kResourcestring; sym_kThreadvar;
   sym_kType; sym_kUses; sym_kVar]].

(** State 2698. *)
Definition ts_parse_table_2698 : parse_row :=
  [ACTIONS 10590 [ts_builtin_sym_end; anon_sym_LBRACK; aux_sym_ppUsesBlock_token1];
   ACTIONS 3 [sym__space]; ACTIONS 5 [sym_ppDirective]; ACTIONS 3 [sym_comment];
   ACTIONS 10590 [sym_kDefault; sym_kNodefault; sym_kDispId; sym_kGeneric; sym_kOperator;
   sym_kPublic; sym_kStatic; sym_kVirtual; sym_kAbstract; sym_kDynamic; sym_kOverride;
   sym_kOverload; sym_kReintroduce; sym_kStdcall; sym_kCdecl; sym_kCppdecl; sym_kPascal;
   sym_kRegister; sym_kMwpascal; sym_kMessage; sym_kDeprecated; sym_kExperimental; sym_kPlatform;
   sym_kUnimplemented; sym_kCvar; sym_kExport; sym_kFar; sym_kNear; sym_kSafecall;
   sym_kAssembler; sym_kNostackframe; sym_kInterrupt; sym_kNoreturn; sym_kIocheck; sym_kLocal;
   sym_kHardfloat; sym_kSoftfloat; sym_kMs_abi_default; sym_kMs_abi_cdecl; sym_kSaveregisters;
   sym_kSysv_abi_default; sym_kSysv_abi_cdecl; sym_kVectorcall; sym_kVarargs; sym_kWinapi;
   sym_kAlias; sym_kBegin; sym_kClass; sym_kConst; sym_kConstructor; sym_kDestructor;
   sym_kExports; sym_kFunction; sym_kInline; sym_kLabel; sym_kProcedure; sym_kResourcestring;
   sym_kThreadvar; sym_kType; sym_kUses; sym_kVar]].

(** State 2699. *)
Definition ts_parse_table_2699 : parse_row :=
  [ACTIONS 10566 [anon_sym_LBRACK; aux_sym_ppUsesBlock_token1]; ACTIONS 3 [sym__space];
   ACTIONS 5 [sym_ppDirective]; ACTIONS 3 [sym_comment]; ACTIONS 10566 [sym_kDefault;
   sym_kNodefault; sym_kDispId; sym_kGeneric; sym_kOperator; sym_kPublic; sym_kStatic;
   sym_kVirtual; sym_kAbstract; sym_kDynamic; sym_kOverride; sym_kOverload; sym_kReintroduce;
   sym_kStdcall; sym_kCdecl; sym_kCppdecl; sym_kPascal; sym_kRegister; sym_kMwpascal;
   sym_kMessage; sym_kDeprecated; sym_kExperimental; sym_kPlatform; sym_kUnimplemented;
   sym_kCvar; sym_kExport; sym_kFar; sym_kNear; sym_kSafecall; sym_kAssembler; sym_kNostackframe;
   sym_kInterrupt; sym_kNoreturn; sym_kIocheck; sym_kLocal; sym_kHardfloat; sym_kSoftfloat;
   sym_kMs_abi_default; sym_kMs_abi_cdecl; sym_kSaveregisters; sym_kSysv_abi_default;
   sym_kSysv_abi_cdecl; sym_kVectorcall; sym_kVarargs; sym_kWinapi; sym_kAlias; sym_kAsm;
   sym_kBegin; sym_kClass; sym_kConst; sym_kConstructor; sym_kDestructor; sym_kExports;
   sym_kFunction; sym_kInline; sym_kLabel; sym_kProcedure; sym_kResourcestring; sym_kThreadvar;
   sym_kType; sym_kUses; sym_kVar]].

(** State 2700. *)
Definition ts_parse_table_2700 : parse_row :=
  [ACTIONS 10594 [ts_builtin_sym_end; anon_sym_LBRACK; aux_sym_ppUsesBlock_token1];
   ACTIONS 3 [sym__space]; ACTIONS 5 [sym_ppDirective]; ACTIONS 3 [sym_comment];
   ACTIONS 10594 [sym_kDefault; sym_kNodefault; sym_kDispId; sym_kGeneric; sym_kOperator;
   sym_kPublic; sym_kStatic; sym_kVirtual; sym_kAbstract; sym_kDynamic; sym_kOverride;
   sym_kOverload; sym_kReintroduce; sym_kStdcall; sym_kCdecl; sym_kCppdecl; sym_kPascal;
   sym_kRegister; sym_kMwpascal; sym_kMessage; sym_kDeprecated; sym_kExperimental; sym_kPlatform;
   sym_kUnimplemented; sym_kCvar; sym_kExport; sym_kFar; sym_kNear; sym_kSafecall;
   sym_kAssembler; sym_kNostackframe; sym_kInterrupt; sym_kNoreturn; sym_kIocheck; sym_kLocal;
   sym_kHardfloat; sym_kSoftfloat; sym_kMs_abi_default; sym_kMs_abi_cdecl; sym_kSaveregisters;
   sym_kSysv_abi_default; sym_kSysv_abi_cdecl; sym_kVectorcall; sym_kVarargs; sym_kWinapi;
   sym_kAlias; sym_kBegin; sym_kClass; sym_kConst; sym_kConstructor; sym_kDestructor;
   sym_kExports; sym_kFunction; sym_kInline; sym_kLabel; sym_kProcedure; sym_kResourcestring;
   sym_kThreadvar; sym_kType; sym_kUses; sym_kVar]].

(** State 2701. *)
Definition ts_parse_table_2701 : parse_row :=
  [ACTIONS 10614 [ts_builtin_sym_end; anon_sym_LBRACK; aux_sym_ppUsesBlock_token1];
   ACTIONS 3 [sym__space]; ACTIONS 5 [sym_ppDirective]; ACTIONS 3 [sym_comment];
   ACTIONS 10614 [sym_kDefault; sym_kNodefault; sym_kDispId; sym_kGeneric; sym_kOperator;
   sym_kPublic; sym_kStatic; sym_kVirtual; sym_kAbstract; sym_kDynamic; sym_kOverride;
   sym_kOverload; sym_kReintroduce; sym_kStdcall; sym_kCdecl; sym_kCppdecl; sym_kPascal;
   sym_kRegister; sym_kMwpascal; sym_kMessage; sym_kDeprecated; sym_kExperimental; sym_kPlatform;
   sym_kUnimplemented; sym_kCvar; sym_kExport; sym_kFar; sym_kNear; sym_kSafecall;
   sym_kAssembler; sym_kNostackframe; sym_kInterrupt; sym_kNoreturn; sym_kIocheck; sym_kLocal;
   sym_kHardfloat; sym_kSoftfloat; sym_kMs_abi_default; sym_kMs_abi_cdecl; sym_kSaveregisters;
   sym_kSysv_abi_default; sym_kSysv_abi_cdecl; sym_kVectorcall; sym_kVarargs; sym_kWinapi;
   sym_kAlias; sym_kBegin; sym_kClass; sym_kConst; sym_kConstructor; sym_kDestructor;
   sym_kExports; sym_kFunction; sym_kInline; sym_kLabel; sym_kProcedure; sym_kResourcestring;
   sym_kThreadvar; sym_kType; sym_kUses; sym_kVar]].

(** State 2702. *)
Definition ts_parse_table_2702 : parse_row :=
  [ACTIONS 10630 [ts_builtin_sym_end; anon_sym_LBRACK; aux_sym_ppUsesBlock_token1];
   ACTIONS 3 [sym__space]; ACTIONS 5 [sym_ppDirective]; ACTIONS 3 [sym_comment];
   ACTIONS 10630 [sym_kDefault; sym_kNodefault; sym_kDispId; sym_kGeneric; sym_kOperator;
   sym_kPublic; sym_kStatic; sym_kVirtual; sym_kAbstract; sym_kDynamic; sym_kOverride;
   sym_kOverload; sym_kReintroduce; sym_kStdcall; sym_kCdecl; sym_kCppdecl; sym_kPascal;
   sym_kRegister; sym_kMwpascal; sym_kMessage; sym_kDeprecated; sym_kExperimental; sym_kPlatform;
   sym_kUnimplemented; sym_kCvar; sym_kExport; sym_kFar; sym_kNear; sym_kSafecall;
   sym_kAssembler; sym_kNostackframe; sym_kInterrupt; sym_kNoreturn; sym_kIocheck; sym_kLocal;
   sym_kHardfloat; sym_kSoftfloat; sym_kMs_abi_default; sym_kMs_abi_cdecl; sym_kSaveregisters;
   sym_kSysv_abi_default; sym_kSysv_abi_cdecl; sym_kVectorcall; sym_kVarargs; sym_kWinapi;
   sym_kAlias; sym_kBegin; sym_kClass; sym_kConst; sym_kConstructor; sym_kDestructor;
   sym_kExports; sym_kFunction; sym_kInline; sym_kLabel; sym_kProcedure; sym_kResourcestring;
   sym_kThreadvar; sym_kType; sym_kUses; sym_kVar]].

(** State 2703. *)
Definition ts_parse_table_2703 : parse_row :=
  [ACTIONS 10576 [ts_builtin_sym_end; anon_sym_LBRACK; aux_sym_ppUsesBlock_token1];
   ACTIONS 3 [sym__space]; ACTIONS 5 [sym_ppDirective]; ACTIONS 3 [sym_comment];
   ACTIONS 10576 [sym_kDefault; sym_kNodefault; sym_kDispId; sym_kGeneric; sym_kOperator;
   sym_kPublic; sym_kStatic; sym_kVirtual; sym_kAbstract; sym_kDynamic; sym_kOverride;
   sym_kOverload; sym_kReintroduce; sym_kStdcall; sym_kCdecl; sym_kCppdecl; sym_kPascal;
   sym_kRegister; sym_kMwpascal; sym_kMessage; sym_kDeprecated; sym_kExperimental; sym_kPlatform;
   sym_kUnimplemented; sym_kCvar; sym_kExport; sym_kFar; sym_kNear; sym_kSafecall;
   sym_kAssembler; sym_kNostackframe; sym_kInterrupt; sym_kNoreturn; sym_kIocheck; sym_kLocal;
   sym_kHardfloat; sym_kSoftfloat; sym_kMs_abi_default; sym_kMs_abi_cdecl; sym_kSaveregisters;
   sym_kSysv_abi_default; sym_kSysv_abi_cdecl; sym_kVectorcall; sym_kVarargs; sym_kWinapi;
   sym_kAlias; sym_kBegin; sym_kClass; sym_kConst; sym_kConstructor; sym_kDestructor;
   sym_kExports; sym_kFunction; sym_kInline; sym_kLabel; sym_kProcedure; sym_kResourcestring;
   sym_kThreadvar; sym_kType; sym_kUses; sym_kVar]].

(** State 2704. *)
Definition ts_parse_table_2704 : parse_row :=
  [ACTIONS 11005 [anon_sym_LBRACK; aux_sym_ppUsesBlock_token1]; ACTIONS 3 [sym__space];
   ACTIONS 5 [sym_ppDirective]; ACTIONS 3 [sym_comment]; ACTIONS 11005 [sym_identifier;
   sym_kDefault; sym_kNodefault; sym_kDispId; sym_kGeneric; sym_kOperator; sym_kPublic;
   sym_kStatic; sym_kVirtual; sym_kAbstract; sym_kDynamic; sym_kOverride; sym_kOverload;
   sym_kReintroduce; sym_kStdcall; sym_kCdecl; sym_kCppdecl; sym_kPascal; sym_kRegister;
   sym_kMwpascal; sym_kMessage; sym_kDeprecated; sym_kExperimental; sym_kPlatform;
   sym_kUnimplemented; sym_kCvar; sym_kExport; sym_kFar; sym_kNear; sym_kSafecall;
   sym_kAssembler; sym_kNostackframe; sym_kInterrupt; sym_kNoreturn; sym_kIocheck; sym_kLocal;
   sym_kHardfloat; sym_kSoftfloat; sym_kMs_abi_default; sym_kMs_abi_cdecl; sym_kSaveregisters;
   sym_kSysv_abi_default; sym_kSysv_abi_cdecl; sym_kVectorcall; sym_kVarargs; sym_kWinapi;
   sym_kAlias; sym_kAsm; sym_kBegin; sym_kClass; sym_kConst; sym_kConstructor; sym_kDestructor;
   sym_kExports; sym_kFunction; sym_kLabel; sym_kProcedure; sym_kResourcestring; sym_kThreadvar;
   sym_kType; sym_kUses; sym_kVar]].

(** State 2705. *)
Definition ts_parse_table_2705 : parse_row :=
  [ACTIONS 10594 [anon_sym_LBRACK; aux_sym_ppUsesBlock_token1]; ACTIONS 3 [sym__space];
   ACTIONS 5 [sym_ppDirective]; ACTIONS 3 [sym_comment]; ACTIONS 10594 [sym_kDefault;
   sym_kNodefault; sym_kDispId; sym_kGeneric; sym_kOperator; sym_kPublic; sym_kStatic;
   sym_kVirtual; sym_kAbstract; sym_kDynamic; sym_kOverride; sym_kOverload; sym_kReintroduce;
   sym_kStdcall; sym_kCdecl; sym_kCppdecl; sym_kPascal; sym_kRegister; sym_kMwpascal;
   sym_kMessage; sym_kDeprecated; sym_kExperimental; sym_kPlatform; sym_kUnimplemented;
   sym_kCvar; sym_kExport; sym_kFar; sym_kNear; sym_kSafecall; sym_kAssembler; sym_kNostackframe;
   sym_kInterrupt; sym_kNoreturn; sym_kIocheck; sym_kLocal; sym_kHardfloat; sym_kSoftfloat;
   sym_kMs_abi_default; sym_kMs_abi_cdecl; sym_kSaveregisters; sym_kSysv_abi_default;
   sym_kSysv_abi_cdecl; sym_kVectorcall; sym_kVarargs; sym_kWinapi; sym_kAlias; sym_kAsm;
   sym_kBegin; sym_kClass; sym_kConst; sym_kConstructor; sym_kDestructor; sym_kExports;
   sym_kFunction; sym_kInline; sym_kLabel; sym_kProcedure; sym_kResourcestring; sym_kThreadvar;
   sym_kType; sym_kUses; sym_kVar]].

(** State 2706. *)
Definition ts_parse_table_2706 : parse_row :=
  [ACTIONS 10634 [anon_sym_LBRACK; aux_sym_ppUsesBlock_token1]; ACTIONS 3 [sym__space];
   ACTIONS 5 [sym_ppDirective]; ACTIONS 3 [sym_comment]; ACTIONS 10634 [sym_kDefault;
   sym_kNodefault; sym_kDispId; sym_kGeneric; sym_kOperator; sym_kPublic; sym_kStatic;
   sym_kVirtual; sym_kAbstract; sym_kDynamic; sym_kOverride; sym_kOverload; sym_kReintroduce;
   sym_kStdcall; sym_kCdecl; sym_kCppdecl; sym_kPascal; sym_kRegister; sym_kMwpascal;
   sym_kMessage; sym_kDeprecated; sym_kExperimental; sym_kPlatform; sym_kUnimplemented;
   sym_kCvar; sym_kExport; sym_kFar; sym_kNear; sym_kSafecall; sym_kAssembler; sym_kNostackframe;
   sym_kInterrupt; sym_kNoreturn; sym_kIocheck; sym_kLocal; sym_kHardfloat; sym_kSoftfloat;
   sym_kMs_abi_default; sym_kMs_abi_cdecl; sym_kSaveregisters; sym_kSysv_abi_default;
   sym_kSysv_abi_cdecl; sym_kVectorcall; sym_kVarargs; sym_kWinapi; sym_kAlias; sym_kAsm;
   sym_kBegin; sym_kClass; sym_kConst; sym_kConstructor; sym_kDestructor; sym_kExports;
   sym_kFunction; sym_kInline; sym_kLabel; sym_kProcedure; sym_kResourcestring; sym_kThreadvar;
   sym_kType; sym_kUses; sym_kVar]].

(** State 2707. *)
Definition ts_parse_table_2707 : parse_row :=
  [ACTIONS 10638 [anon_sym_LBRACK; aux_sym_ppUsesBlock_token1]; ACTIONS 3 [sym__space];
   ACTIONS 5 [sym_ppDirective]; ACTIONS 3 [sym_comment]; ACTIONS 10638 [sym_kDefault;
   sym_kNodefault; sym_kDispId; sym_kGeneric; sym_kOperator; sym_kPublic; sym_kStatic;
   sym_kVirtual; sym_kAbstract; sym_kDynamic; sym_kOverride; sym_kOverload; sym_kReintroduce;
   sym_kStdcall; sym_kCdecl; sym_kCppdecl; sym_kPascal; sym_kRegister; sym_kMwpascal;
   sym_kMessage; sym_kDeprecated; sym_kExperimental; sym_kPlatform; sym_kUnimplemented;
   sym_kCvar; sym_kExport; sym_kFar; sym_kNear; sym_kSafecall; sym_kAssembler; sym_kNostackframe;
   sym_kInterrupt; sym_kNoreturn; sym_kIocheck; sym_kLocal; sym_kHardfloat; sym_kSoftfloat;
   sym_kMs_abi_default; sym_kMs_abi_cdecl; sym_kSaveregisters; sym_kSysv_abi_default;
   sym_kSysv_abi_cdecl; sym_kVectorcall; sym_kVarargs; sym_kWinapi; sym_kAlias; sym_kBegin;
   sym_kClass; sym_kConst; sym_kConstructor; sym_kDestructor; sym_kEnd; sym_kExports;
   sym_kFunction; sym_kInline; sym_kLabel; sym_kProcedure; sym_kResourcestring; sym_kThreadvar;
   sym_kType; sym_kUses; sym_kVar]].

(** State 2708. *)
Definition ts_parse_table_2708 : parse_row :=
  [ACTIONS 10594 [anon_sym_LBRACK; aux_sym_ppUsesBlock_token1]; ACTIONS 3 [sym__space];
   ACTIONS 5 [sym_ppDirective]; ACTIONS 3 [sym_comment]; ACTIONS 10594 [sym_kDefault;
   sym_kNodefault; sym_kDispId; sym_kGeneric; sym_kOperator; sym_kPublic; sym_kStatic;
   sym_kVirtual; sym_kAbstract; sym_kDynamic; sym_kOverride; sym_kOverload; sym_kReintroduce;
   sym_kStdcall; sym_kCdecl; sym_kCppdecl; sym_kPascal; sym_kRegister; sym_kMwpascal;
   sym_kMessage; sym_kDeprecated; sym_kExperimental; sym_kPlatform; sym_kUnimplemented;
   sym_kCvar; sym_kExport; sym_kFar; sym_kNear; sym_kSafecall; sym_kAssembler; sym_kNostackframe;
   sym_kInterrupt; sym_kNoreturn; sym_kIocheck; sym_kLocal; sym_kHardfloat; sym_kSoftfloat;
   sym_kMs_abi_default; sym_kMs_abi_cdecl; sym_kSaveregisters; sym_kSysv_abi_default;
   sym_kSysv_abi_cdecl; sym_kVectorcall; sym_kVarargs; sym_kWinapi; sym_kAlias; sym_kBegin;
   sym_kClass; sym_kConst; sym_kConstructor; sym_kDestructor; sym_kEnd; sym_kExports;
   sym_kFunction; sym_kInline; sym_kLabel; sym_kProcedure; sym_kResourcestring; sym_kThreadvar;
   sym_kType; sym_kUses; sym_kVar]].

(** State 2709. *)
Definition ts_parse_table_2709 : parse_row :=
  [ACTIONS 10594 [anon_sym_LBRACK; aux_sym_ppUsesBlock_token1]; ACTIONS 3 [sym__space];
   ACTIONS 5 [sym_ppDirective]; ACTIONS 3 [sym_comment]; ACTIONS 10594 [sym_kDefault;
   sym_kNodefault; sym_kDispId; sym_kGeneric; sym_kOperator; sym_kPublic; sym_kStatic;
   sym_kVirtual; sym_kAbstract; sym_kDynamic; sym_kOverride; sym_kOverload; sym_kReintroduce;
   sym_kStdcall; sym_kCdecl; sym_kCppdecl; sym_kPascal; sym_kRegister; sym_kMwpascal;
   sym_kMessage; sym_kDeprecated; sym_kExperimental; sym_kPlatform; sym_kUnimplemented;
   sym_kCvar; sym_kExport; sym_kFar; sym_kNear; sym_kSafecall; sym_kAssembler; sym_kNostackframe;
   sym_kInterrupt; sym_kNoreturn; sym_kIocheck; sym_kLocal; sym_kHardfloat; sym_kSoftfloat;
   sym_kMs_abi_default; sym_kMs_abi_cdecl; sym_kSaveregisters; sym_kSysv_abi_default;
   sym_kSysv_abi_cdecl; sym_kVectorcall; sym_kVarargs; sym_kWinapi; sym_kAlias; sym_kBegin;
   sym_kClass; sym_kConst; sym_kConstructor; sym_kDestructor; sym_kEnd; sym_kExports;
   sym_kFunction; sym_kInline; sym_kLabel; sym_kProcedure; sym_kResourcestring; sym_kThreadvar;
   sym_kType; sym_kUses; sym_kVar]].

(** State 2710. *)
Definition ts_parse_table_2710 : parse_row :=
  [ACTIONS 9810 [anon_sym_LBRACK; aux_sym_ppUsesBlock_token1]; ACTIONS 3 [sym__space];
   ACTIONS 5 [sym_ppDirective]; ACTIONS 3 [sym_comment]; ACTIONS 9810 [sym_identifier;
   sym_kDefault; sym_kNodefault; sym_kDispId; sym_kGeneric; sym_kOperator; sym_kPublic;
   sym_kStatic; sym_kVirtual; sym_kAbstract; sym_kDynamic; sym_kOverride; sym_kOverload;
   sym_kReintroduce; sym_kStdcall; sym_kCdecl; sym_kCppdecl; sym_kPascal; sym_kRegister;
   sym_kMwpascal; sym_kMessage; sym_kDeprecated; sym_kExperimental; sym_kPlatform;
   sym_kUnimplemented; sym_kCvar; sym_kExport; sym_kFar; sym_kNear; sym_kSafecall;
   sym_kAssembler; sym_kNostackframe; sym_kInterrupt; sym_kNoreturn; sym_kIocheck; sym_kLocal;
   sym_kHardfloat; sym_kSoftfloat; sym_kMs_abi_default; sym_kMs_abi_cdecl; sym_kSaveregisters;
   sym_kSysv_abi_default; sym_kSysv_abi_cdecl; sym_kVectorcall; sym_kVarargs; sym_kWinapi;
   sym_kAlias; sym_kAsm; sym_kBegin; sym_kClass; sym_kConst; sym_kConstructor; sym_kDestructor;
   sym_kExports; sym_kFunction; sym_kLabel; sym_kProcedure; sym_kResourcestring; sym_kThreadvar;
   sym_kType; sym_kUses; sym_kVar]].

(** State 2711. *)
Definition ts_parse_table_2711 : parse_row :=
  [ACTIONS 11005 [anon_sym_LBRACK; aux_sym_ppUsesBlock_token1]; ACTIONS 3 [sym__space];
   ACTIONS 5 [sym_ppDirective]; ACTIONS 3 [sym_comment]; ACTIONS 11005 [sym_identifier;
   sym_kDefault; sym_kNodefault; sym_kDispId; sym_kGeneric; sym_kOperator; sym_kPublic;
   sym_kStatic; sym_kVirtual; sym_kAbstract; sym_kDynamic; sym_kOverride; sym_kOverload;
   sym_kReintroduce; sym_kStdcall; sym_kCdecl; sym_kCppdecl; sym_kPascal; sym_kRegister;
   sym_kMwpascal; sym_kMessage; sym_kDeprecated; sym_kExperimental; sym_kPlatform;
   sym_kUnimplemented; sym_kCvar; sym_kExport; sym_kFar; sym_kNear; sym_kSafecall;
   sym_kAssembler; sym_kNostackframe; sym_kInterrupt; sym_kNoreturn; sym_kIocheck; sym_kLocal;
   sym_kHardfloat; sym_kSoftfloat; sym_kMs_abi_default; sym_kMs_abi_cdecl; sym_kSaveregisters;
   sym_kSysv_abi_default; sym_kSysv_abi_cdecl; sym_kVectorcall; sym_kVarargs; sym_kWinapi;
   sym_kAlias; sym_kBegin; sym_kClass; sym_kConst; sym_kConstructor; sym_kDestructor; sym_kEnd;
   sym_kExports; sym_kFunction; sym_kLabel; sym_kProcedure; sym_kResourcestring; sym_kThreadvar;
   sym_kType; sym_kUses; sym_kVar]].

(** State 2712. *)
Definition ts_parse_table_2712 : parse_row :=
  [ACTIONS 9822 [anon_sym_LBRACK; aux_sym_ppUsesBlock_token1]; ACTIONS 3 [sym__space];
   ACTIONS 5 [sym_ppDirective]; ACTIONS 3 [sym_comment]; ACTIONS 9822 [sym_kDefault;
   sym_kNodefault; sym_kDispId; sym_kGeneric; sym_kOperator; sym_kPublic; sym_kStatic;
   sym_kVirtual; sym_kAbstract; sym_kDynamic; sym_kOverride; sym_kOverload; sym_kReintroduce;
   sym_kStdcall; sym_kCdecl; sym_kCppdecl; sym_kPascal; sym_kRegister; sym_kMwpascal;
   sym_kMessage; sym_kDeprecated; sym_kExperimental; sym_kPlatform; sym_kUnimplemented;
   sym_kCvar; sym_kExport; sym_kFar; sym_kNear; sym_kSafecall; sym_kAssembler; sym_kNostackframe;
   sym_kInterrupt; sym_kNoreturn; sym_kIocheck; sym_kLocal; sym_kHardfloat; sym_kSoftfloat;
   sym_kMs_abi_default; sym_kMs_abi_cdecl; sym_kSaveregisters; sym_kSysv_abi_default;
   sym_kSysv_abi_cdecl; sym_kVectorcall; sym_kVarargs; sym_kWinapi; sym_kAlias; sym_kAsm;
   sym_kBegin; sym_kClass; sym_kConst; sym_kConstructor; sym_kDestructor; sym_kExports;
   sym_kFunction; sym_kInline; sym_kLabel; sym_kProcedure; sym_kResourcestring; sym_kThreadvar;
   sym_kType; sym_kUses; sym_kVar]].

(** State 2713. *)
Definition ts_parse_table_2713 : parse_row :=
  [ACTIONS 10566 [ts_builtin_sym_end; anon_sym_LBRACK; aux_sym_ppUsesBlock_token1];
   ACTIONS 3 [sym__space]; ACTIONS 5 [sym_ppDirective]; ACTIONS 3 [sym_comment];
   ACTIONS 10566 [sym_kDefault; sym_kNodefault; sym_kDispId; sym_kGeneric; sym_kOperator;
   sym_kPublic; sym_kStatic; sym_kVirtual; sym_kAbstract; sym_kDynamic; sym_kOverride;
   sym_kOverload; sym_kReintroduce; sym_kStdcall; sym_kCdecl; sym_kCppdecl; sym_kPascal;
   sym_kRegister; sym_kMwpascal; sym_kMessage; sym_kDeprecated; sym_kExperimental; sym_kPlatform;
   sym_kUnimplemented; sym_kCvar; sym_kExport; sym_kFar; sym_kNear; sym_kSafecall;
   sym_kAssembler; sym_kNostackframe; sym_kInterrupt; sym_kNoreturn; sym_kIocheck; sym_kLocal;
   sym_kHardfloat; sym_kSoftfloat; sym_kMs_abi_default; sym_kMs_abi_cdecl; sym_kSaveregisters;
   sym_kSysv_abi_default; sym_kSysv_abi_cdecl; sym_kVectorcall; sym_kVarargs; sym_kWinapi;
   sym_kAlias; sym_kBegin; sym_kClass; sym_kConst; sym_kConstructor; sym_kDestructor;
   sym_kExports; sym_kFunction; sym_kInline; sym_kLabel; sym_kProcedure; sym_kResourcestring;
   sym_kThreadvar; sym_kType; sym_kUses; sym_kVar]].

(** State 2714. *)
Definition ts_parse_table_2714 : parse_row :=
  [ACTIONS 11049 [anon_sym_LBRACK; aux_sym_ppUsesBlock_token1]; ACTIONS 3 [sym__space];
   ACTIONS 5 [sym_ppDirective]; ACTIONS 3 [sym_comment]; ACTIONS 11049 [sym_identifier;
   sym_kDefault; sym_kNodefault; sym_kDispId; sym_kGeneric; sym_kOperator; sym_kPublic;
   sym_kStatic; sym_kVirtual; sym_kAbstract; sym_kDynamic; sym_kOverride; sym_kOverload;
   sym_kReintroduce; sym_kStdcall; sym_kCdecl; sym_kCppdecl; sym_kPascal; sym_kRegister;
   sym_kMwpascal; sym_kMessage; sym_kDeprecated; sym_kExperimental; sym_kPlatform;
   sym_kUnimplemented; sym_kCvar; sym_kExport; sym_kFar; sym_kNear; sym_kSafecall;
   sym_kAssembler; sym_kNostackframe; sym_kInterrupt; sym_kNoreturn; sym_kIocheck; sym_kLocal;
   sym_kHardfloat; sym_kSoftfloat; sym_kMs_abi_default; sym_kMs_abi_cdecl; sym_kSaveregisters;
   sym_kSysv_abi_default; sym_kSysv_abi_cdecl; sym_kVectorcall; sym_kVarargs; sym_kWinapi;
   sym_kAlias; sym_kBegin; sym_kClass; sym_kConst; sym_kConstructor; sym_kDestructor; sym_kEnd;
   sym_kExports; sym_kFunction; sym_kLabel; sym_kProcedure; sym_kResourcestring; sym_kThreadvar;
   sym_kType; sym_kUses; sym_kVar]].

(** State 2715. *)
Definition ts_parse_table_2715 : parse_row :=
  [ACTIONS 9858 [anon_sym_LBRACK; aux_sym_ppUsesBlock_token1]; ACTIONS 3 [sym__space];
   ACTIONS 5 [sym_ppDirective]; ACTIONS 3 [sym_comment]; ACTIONS 9858 [sym_kDefault;
   sym_kNodefault; sym_kDispId; sym_kGeneric; sym_kOperator; sym_kPublic; sym_kStatic;
   sym_kVirtual; sym_kAbstract; sym_kDynamic; sym_kOverride; sym_kOverload; sym_kReintroduce;
   sym_kStdcall; sym_kCdecl; sym_kCppdecl; sym_kPascal; sym_kRegister; sym_kMwpascal;
   sym_kMessage; sym_kDeprecated; sym_kExperimental; sym_kPlatform; sym_kUnimplemented;
   sym_kCvar; sym_kExport; sym_kFar; sym_kNear; sym_kSafecall; sym_kAssembler; sym_kNostackframe;
   sym_kInterrupt; sym_kNoreturn; sym_kIocheck; sym_kLocal; sym_kHardfloat; sym_kSoftfloat;
   sym_kMs_abi_default; sym_kMs_abi_cdecl; sym_kSaveregisters; sym_kSysv_abi_default;
   sym_kSysv_abi_cdecl; sym_kVectorcall; sym_kVarargs; sym_kWinapi; sym_kAlias; sym_kAsm;
   sym_kBegin; sym_kClass; sym_kConst; sym_kConstructor; sym_kDestructor; sym_kExports;
   sym_kFunction; sym_kInline; sym_kLabel; sym_kProcedure; sym_kResourcestring; sym_kThreadvar;
   sym_kType; sym_kUses; sym_kVar]].

(** State 2716. *)
Definition ts_parse_table_2716 : parse_row :=
  [ACTIONS 9974 [anon_sym_LBRACK; aux_sym_ppUsesBlock_token1]; ACTIONS 3 [sym__space];
   ACTIONS 5 [sym_ppDirective]; ACTIONS 3 [sym_comment]; ACTIONS 9974 [sym_kDefault;
   sym_kNodefault; sym_kDispId; sym_kGeneric; sym_kOperator; sym_kPublic; sym_kStatic;
   sym_kVirtual; sym_kAbstract; sym_kDynamic; sym_kOverride; sym_kOverload; sym_kReintroduce;
   sym_kStdcall; sym_kCdecl; sym_kCppdecl; sym_kPascal; sym_kRegister; sym_kMwpascal;
   sym_kMessage; sym_kDeprecated; sym_kExperimental; sym_kPlatform; sym_kUnimplemented;
   sym_kCvar; sym_kExport; sym_kFar; sym_kNear; sym_kSafecall; sym_kAssembler; sym_kNostackframe;
   sym_kInterrupt; sym_kNoreturn; sym_kIocheck; sym_kLocal; sym_kHardfloat; sym_kSoftfloat;
   sym_kMs_abi_default; sym_kMs_abi_cdecl; sym_kSaveregisters; sym_kSysv_abi_default;
   sym_kSysv_abi_cdecl; sym_kVectorcall; sym_kVarargs; sym_kWinapi; sym_kAlias; sym_kAsm;
   sym_kBegin; sym_kClass; sym_kConst; sym_kConstructor; sym_kDestructor; sym_kExports;
   sym_kFunction; sym_kInline; sym_kLabel; sym_kProcedure; sym_kResourcestring; sym_kThreadvar;
   sym_kType; sym_kUses; sym_kVar]].

(** State 2717. *)
Definition ts_parse_table_2717 : parse_row :=
  [ACTIONS 9850 [anon_sym_LBRACK; aux_sym_ppUsesBlock_token1]; ACTIONS 3 [sym__space];
   ACTIONS 5 [sym_ppDirective]; ACTIONS 3 [sym_comment]; ACTIONS 9850 [sym_kDefault;
   sym_kNodefault; sym_kDispId; sym_kGeneric; sym_kOperator; sym_kPublic; sym_kStatic;
   sym_kVirtual; sym_kAbstract; sym_kDynamic; sym_kOverride; sym_kOverload; sym_kReintroduce;
   sym_kStdcall; sym_kCdecl; sym_kCppdecl; sym_kPascal; sym_kRegister; sym_kMwpascal;
   sym_kMessage; sym_kDeprecated; sym_kExperimental; sym_kPlatform; sym_kUnimplemented;
   sym_kCvar; sym_kExport; sym_kFar; sym_kNear; sym_kSafecall; sym_kAssembler; sym_kNostackframe;
   sym_kInterrupt; sym_kNoreturn; sym_kIocheck; sym_kLocal; sym_kHardfloat; sym_kSoftfloat;
   sym_kMs_abi_default; sym_kMs_abi_cdecl; sym_kSaveregisters; sym_kSysv_abi_default;
   sym_kSysv_abi_cdecl; sym_kVectorcall; sym_kVarargs; sym_kWinapi; sym_kAlias; sym_kAsm;
   sym_kBegin; sym_kClass; sym_kConst; sym_kConstructor; sym_kDestructor; sym_kExports;
   sym_kFunction; sym_kInline; sym_kLabel; sym_kProcedure; sym_kResourcestring; sym_kThreadvar;
   sym_kType; sym_kUses; sym_kVar]].

(** State 2718. *)
Definition ts_parse_table_2718 : parse_row :=
  [ACTIONS 10638 [ts_builtin_sym_end; anon_sym_LBRACK; aux_sym_ppUsesBlock_token1];
   ACTIONS 3 [sym__space]; ACTIONS 5 [sym_ppDirective]; ACTIONS 3 [sym_comment];
   ACTIONS 10638 [sym_kDefault; sym_kNodefault; sym_kDispId; sym_kGeneric; sym_kOperator;
   sym_kPublic; sym_kStatic; sym_kVirtual; sym_kAbstract; sym_kDynamic; sym_kOverride;
   sym_kOverload; sym_kReintroduce; sym_kStdcall; sym_kCdecl; sym_kCppdecl; sym_kPascal;
   sym_kRegister; sym_kMwpascal; sym_kMessage; sym_kDeprecated; sym_kExperimental; sym_kPlatform;
   sym_kUnimplemented; sym_kCvar; sym_kExport; sym_kFar; sym_kNear; sym_kSafecall;
   sym_kAssembler; sym_kNostackframe; sym_kInterrupt; sym_kNoreturn; sym_kIocheck; sym_kLocal;
   sym_kHardfloat; sym_kSoftfloat; sym_kMs_abi_default; sym_kMs_abi_cdecl; sym_kSaveregisters;
   sym_kSysv_abi_default; sym_kSysv_abi_cdecl; sym_kVectorcall; sym_kVarargs; sym_kWinapi;
   sym_kAlias; sym_kBegin; sym_kClass; sym_kConst; sym_kConstructor; sym_kDestructor;
   sym_kExports; sym_kFunction; sym_kInline; sym_kLabel; sym_kProcedure; sym_kResourcestring;
   sym_kThreadvar; sym_kType; sym_kUses; sym_kVar]].

(** State 2719. *)
Definition ts_parse_table_2719 : parse_row :=
  [ACTIONS 10594 [ts_builtin_sym_end; anon_sym_LBRACK; aux_sym_ppUsesBlock_token1];
   ACTIONS 3 [sym__space]; ACTIONS 5 [sym_ppDirective]; ACTIONS 3 [sym_comment];
   ACTIONS 10594 [sym_kDefault; sym_kNodefault; sym_kDispId; sym_kGeneric; sym_kOperator;
   sym_kPublic; sym_kStatic; sym_kVirtual; sym_kAbstract; sym_kDynamic; sym_kOverride;
   sym_kOverload; sym_kReintroduce; sym_kStdcall; sym_kCdecl; sym_kCppdecl; sym_kPascal;
   sym_kRegister; sym_kMwpascal; sym_kMessage; sym_kDeprecated; sym_kExperimental; sym_kPlatform;
   sym_kUnimplemented; sym_kCvar; sym_kExport; sym_kFar; sym_kNear; sym_kSafecall;
   sym_kAssembler; sym_kNostackframe; sym_kInterrupt; sym_kNoreturn; sym_kIocheck; sym_kLocal;
   sym_kHardfloat; sym_kSoftfloat; sym_kMs_abi_default; sym_kMs_abi_cdecl; sym_kSaveregisters;
   sym_kSysv_abi_default; sym_kSysv_abi_cdecl; sym_kVectorcall; sym_kVarargs; sym_kWinapi;
   sym_kAlias; sym_kBegin; sym_kClass; sym_kConst; sym_kConstructor; sym_kDestructor;
   sym_kExports; sym_kFunction; sym_kInline; sym_kLabel; sym_kProcedure; sym_kResourcestring;
   sym_kThreadvar; sym_kType; sym_kUses; sym_kVar]].

(** State 2720. *)
Definition ts_parse_table_2720 : parse_row :=
  [ACTIONS 9850 [anon_sym_LBRACK; aux_sym_ppUsesBlock_token1]; ACTIONS 3 [sym__space];
   ACTIONS 5 [sym_ppDirective]; ACTIONS 3 [sym_comment]; ACTIONS 9850 [sym_kDefault;
   sym_kNodefault; sym_kDispId; sym_kGeneric; sym_kOperator; sym_kPublic; sym_kStatic;
   sym_kVirtual; sym_kAbstract; sym_kDynamic; sym_kOverride; sym_kOverload; sym_kReintroduce;
   sym_kStdcall; sym_kCdecl; sym_kCppdecl; sym_kPascal; sym_kRegister; sym_kMwpascal;
   sym_kMessage; sym_kDeprecated; sym_kExperimental; sym_kPlatform; sym_kUnimplemented;
   sym_kCvar; sym_kExport; sym_kFar; sym_kNear; sym_kSafecall; sym_kAssembler; sym_kNostackframe;
   sym_kInterrupt; sym_kNoreturn; sym_kIocheck; sym_kLocal; sym_kHardfloat; sym_kSoftfloat;
   sym_kMs_abi_default; sym_kMs_abi_cdecl; sym_kSaveregisters; sym_kSysv_abi_default;
   sym_kSysv_abi_cdecl; sym_kVectorcall; sym_kVarargs; sym_kWinapi; sym_kAlias; sym_kAsm;
   sym_kBegin; sym_kClass; sym_kConst; sym_kConstructor; sym_kDestructor; sym_kExports;
   sym_kFunction; sym_kInline; sym_kLabel; sym_kProcedure; sym_kResourcestring; sym_kThreadvar;
   sym_kType; sym_kUses; sym_kVar]].

(** State 2721. *)
Definition ts_parse_table_2721 : parse_row :=
  [ACTIONS 9810 [anon_sym_LBRACK; aux_sym_ppUsesBlock_token1]; ACTIONS 3 [sym__space];
   ACTIONS 5 [sym_ppDirective]; ACTIONS 3 [sym_comment]; ACTIONS 9810 [sym_kDefault;
   sym_kNodefault; sym_kDispId; sym_kGeneric; sym_kOperator; sym_kPublic; sym_kStatic;
   sym_kVirtual; sym_kAbstract; sym_kDynamic; sym_kOverride; sym_kOverload; sym_kReintroduce;
   sym_kStdcall; sym_kCdecl; sym_kCppdecl; sym_kPascal; sym_kRegister; sym_kMwpascal;
   sym_kMessage; sym_kDeprecated; sym_kExperimental; sym_kPlatform; sym_kUnimplemented;
   sym_kCvar; sym_kExport; sym_kFar; sym_kNear; sym_kSafecall; sym_kAssembler; sym_kNostackframe;
   sym_kInterrupt; sym_kNoreturn; sym_kIocheck; sym_kLocal; sym_kHardfloat; sym_kSoftfloat;
   sym_kMs_abi_default; sym_kMs_abi_cdecl; sym_kSaveregisters; sym_kSysv_abi_default;
   sym_kSysv_abi_cdecl; sym_kVectorcall; sym_kVarargs; sym_kWinapi; sym_kAlias; sym_kAsm;
   sym_kBegin; sym_kClass; sym_kConst; sym_kConstructor; sym_kDestructor; sym_kExports;
   sym_kFunction; sym_kInline; sym_kLabel; sym_kProcedure; sym_kResourcestring; sym_kThreadvar;
   sym_kType; sym_kUses; sym_kVar]].

(** State 2722. *)
Definition ts_parse_table_2722 : parse_row :=
  [ACTIONS 10614 [anon_sym_LBRACK; aux_sym_ppUsesBlock_token1]; ACTIONS 3 [sym__space];
   ACTIONS 5 [sym_ppDirective]; ACTIONS 3 [sym_comment]; ACTIONS 10614 [sym_kDefault;
   sym_kNodefault; sym_kDispId; sym_kGeneric; sym_kOperator; sym_kPublic; sym_kStatic;
   sym_kVirtual; sym_kAbstract; sym_kDynamic; sym_kOverride; sym_kOverload; sym_kReintroduce;
   sym_kStdcall; sym_kCdecl; sym_kCppdecl; sym_kPascal; sym_kRegister; sym_kMwpascal;
   sym_kMessage; sym_kDeprecated; sym_kExperimental; sym_kPlatform; sym_kUnimplemented;
   sym_kCvar; sym_kExport; sym_kFar; sym_kNear; sym_kSafecall; sym_kAssembler; sym_kNostackframe;
   sym_kInterrupt; sym_kNoreturn; sym_kIocheck; sym_kLocal; sym_kHardfloat; sym_kSoftfloat;
   sym_kMs_abi_default; sym_kMs_abi_cdecl; sym_kSaveregisters; sym_kSysv_abi_default;
   sym_kSysv_abi_cdecl; sym_kVectorcall; sym_kVarargs; sym_kWinapi; sym_kAlias; sym_kBegin;
   sym_kClass; sym_kConst; sym_kConstructor; sym_kDestructor; sym_kEnd; sym_kExports;
   sym_kFunction; sym_kInline; sym_kLabel; sym_kProcedure; sym_kResourcestring; sym_kThreadvar;
   sym_kType; sym_kUses; sym_kVar]].

(** State 2723. *)
Definition ts_parse_table_2723 : parse_row :=
  [ACTIONS 9834 [anon_sym_LBRACK; aux_sym_ppUsesBlock_token1]; ACTIONS 3 [sym__space];
   ACTIONS 5 [sym_ppDirective]; ACTIONS 3 [sym_comment]; ACTIONS 9834 [sym_kDefault;
   sym_kNodefault; sym_kDispId; sym_kGeneric; sym_kOperator; sym_kPublic; sym_kStatic;
   sym_kVirtual; sym_kAbstract; sym_kDynamic; sym_kOverride; sym_kOverload; sym_kReintroduce;
   sym_kStdcall; sym_kCdecl; sym_kCppdecl; sym_kPascal; sym_kRegister; sym_kMwpascal;
   sym_kMessage; sym_kDeprecated; sym_kExperimental; sym_kPlatform; sym_kUnimplemented;
   sym_kCvar; sym_kExport; sym_kFar; sym_kNear; sym_kSafecall; sym_kAssembler; sym_kNostackframe;
   sym_kInterrupt; sym_kNoreturn; sym_kIocheck; sym_kLocal; sym_kHardfloat; sym_kSoftfloat;
   sym_kMs_abi_default; sym_kMs_abi_cdecl; sym_kSaveregisters; sym_kSysv_abi_default;
   sym_kSysv_abi_cdecl; sym_kVectorcall; sym_kVarargs; sym_kWinapi; sym_kAlias; sym_kAsm;
   sym_kBegin; sym_kClass; sym_kConst; sym_kConstructor; sym_kDestructor; sym_kExports;
   sym_kFunction; sym_kInline; sym_kLabel; sym_kProcedure; sym_kResourcestring; sym_kThreadvar;
   sym_kType; sym_kUses; sym_kVar]].

(** State 2724. *)
Definition ts_parse_table_2724 : parse_row :=
  [ACTIONS 10796 [anon_sym_LBRACK; aux_sym_ppUsesBlock_token1]; ACTIONS 3 [sym__space];
   ACTIONS 5 [sym_ppDirective]; ACTIONS 3 [sym_comment]; ACTIONS 10796 [sym_kDefault;
   sym_kNodefault; sym_kDispId; sym_kGeneric; sym_kOperator; sym_kPublic; sym_kStatic;
   sym_kVirtual; sym_kAbstract; sym_kDynamic; sym_kOverride; sym_kOverload; sym_kReintroduce;
   sym_kStdcall; sym_kCdecl; sym_kCppdecl; sym_kPascal; sym_kRegister; sym_kMwpascal;
   sym_kMessage; sym_kDeprecated; sym_kExperimental; sym_kPlatform; sym_kUnimplemented;
   sym_kCvar; sym_kExport; sym_kFar; sym_kNear; sym_kSafecall; sym_kAssembler; sym_kNostackframe;
   sym_kInterrupt; sym_kNoreturn; sym_kIocheck; sym_kLocal; sym_kHardfloat; sym_kSoftfloat;
   sym_kMs_abi_default; sym_kMs_abi_cdecl; sym_kSaveregisters; sym_kSysv_abi_default;
   sym_kSysv_abi_cdecl; sym_kVectorcall; sym_kVarargs; sym_kWinapi; sym_kAlias; sym_kBegin;
   sym_kClass; sym_kConst; sym_kConstructor; sym_kDestructor; sym_kEnd; sym_kExports;
   sym_kFunction; sym_kInline; sym_kLabel; sym_kProcedure; sym_kResourcestring; sym_kThreadvar;
   sym_kType; sym_kUses; sym_kVar]].

(** State 2725. *)
Definition ts_parse_table_2725 : parse_row :=
  [ACTIONS 9838 [anon_sym_LBRACK; aux_sym_ppUsesBlock_token1]; ACTIONS 3 [sym__space];
   ACTIONS 5 [sym_ppDirective]; ACTIONS 3 [sym_comment]; ACTIONS 9838 [sym_kDefault;
   sym_kNodefault; sym_kDispId; sym_kGeneric; sym_kOperator; sym_kPublic; sym_kStatic;
   sym_kVirtual; sym_kAbstract; sym_kDynamic; sym_kOverride; sym_kOverload; sym_kReintroduce;
   sym_kStdcall; sym_kCdecl; sym_kCppdecl; sym_kPascal; sym_kRegister; sym_kMwpascal;
   sym_kMessage; sym_kDeprecated; sym_kExperimental; sym_kPlatform; sym_kUnimplemented;
   sym_kCvar; sym_kExport; sym_kFar; sym_kNear; sym_kSafecall; sym_kAssembler; sym_kNostackframe;
   sym_kInterrupt; sym_kNoreturn; sym_kIocheck; sym_kLocal; sym_kHardfloat; sym_kSoftfloat;
   sym_kMs_abi_default; sym_kMs_abi_cdecl; sym_kSaveregisters; sym_kSysv_abi_default;
   sym_kSysv_abi_cdecl; sym_kVectorcall; sym_kVarargs; sym_kWinapi; sym_kAlias; sym_kAsm;
   sym_kBegin; sym_kClass; sym_kConst; sym_kConstructor; sym_kDestructor; sym_kExports;
   sym_kFunction; sym_kInline; sym_kLabel; sym_kProcedure; sym_kResourcestring; sym_kThreadvar;
   sym_kType; sym_kUses; sym_kVar]].

(** State 2726. *)
Definition ts_parse_table_2726 : parse_row :=
  [ACTIONS 10932 [anon_sym_LBRACK; aux_sym_ppUsesBlock_token1]; ACTIONS 3 [sym__space];
   ACTIONS 5 [sym_ppDirective]; ACTIONS 3 [sym_comment]; ACTIONS 10932 [sym_identifier;
   sym_kDefault; sym_kNodefault; sym_kDispId; sym_kGeneric; sym_kOperator; sym_kPublic;
   sym_kStatic; sym_kVirtual; sym_kAbstract; sym_kDynamic; sym_kOverride; sym_kOverload;
   sym_kReintroduce; sym_kStdcall; sym_kCdecl; sym_kCppdecl; sym_kPascal; sym_kRegister;
   sym_kMwpascal; sym_kMessage; sym_kDeprecated; sym_kExperimental; sym_kPlatform;
   sym_kUnimplemented; sym_kCvar; sym_kExport; sym_kFar; sym_kNear; sym_kSafecall;
   sym_kAssembler; sym_kNostackframe; sym_kInterrupt; sym_kNoreturn; sym_kIocheck; sym_kLocal;
   sym_kHardfloat; sym_kSoftfloat; sym_kMs_abi_default; sym_kMs_abi_cdecl; sym_kSaveregisters;
   sym_kSysv_abi_default; sym_kSysv_abi_cdecl; sym_kVectorcall; sym_kVarargs; sym_kWinapi;
   sym_kAlias; sym_kAsm; sym_kBegin; sym_kClass; sym_kConst; sym_kConstructor; sym_kDestructor;
   sym_kExports; sym_kFunction; sym_kLabel; sym_kProcedure; sym_kResourcestring; sym_kThreadvar;
   sym_kType; sym_kUses; sym_kVar]].

(** State 2727. *)
Definition ts_parse_table_2727 : parse_row :=
  [ACTIONS 10932 [anon_sym_LBRACK; aux_sym_ppUsesBlock_token1]; ACTIONS 3 [sym__space];
   ACTIONS 5 [sym_ppDirective]; ACTIONS 3 [sym_comment]; ACTIONS 10932 [sym_identifier;
   sym_kDefault; sym_kNodefault; sym_kDispId; sym_kGeneric; sym_kOperator; sym_kPublic;
   sym_kStatic; sym_kVirtual; sym_kAbstract; sym_kDynamic; sym_kOverride; sym_kOverload;
   sym_kReintroduce; sym_kStdcall; sym_kCdecl; sym_kCppdecl; sym_kPascal; sym_kRegister;
   sym_kMwpascal; sym_kMessage; sym_kDeprecated; sym_kExperimental; sym_kPlatform;
   sym_kUnimplemented; sym_kCvar; sym_kExport; sym_kFar; sym_kNear; sym_kSafecall;
   sym_kAssembler; sym_kNostackframe; sym_kInterrupt; sym_kNoreturn; sym_kIocheck; sym_kLocal;
   sym_kHardfloat; sym_kSoftfloat; sym_kMs_abi_default; sym_kMs_abi_cdecl; sym_kSaveregisters;
   sym_kSysv_abi_default; sym_kSysv_abi_cdecl; sym_kVectorcall; sym_kVarargs; sym_kWinapi;
   sym_kAlias; sym_kBegin; sym_kClass; sym_kConst; sym_kConstructor; sym_kDestructor; sym_kEnd;
   sym_kExports; sym_kFunction; sym_kLabel; sym_kProcedure; sym_kResourcestring; sym_kThreadvar;
   sym_kType; sym_kUses; sym_kVar]].

(** State 2728. *)
Definition ts_parse_table_2728 : parse_row :=
  [ACTIONS 10796 [ts_builtin_sym_end; anon_sym_LBRACK; aux_sym_ppUsesBlock_token1];
   ACTIONS 3 [sym__space]; ACTIONS 5 [sym_ppDirective]; ACTIONS 3 [sym_comment];
   ACTIONS 10796 [sym_kDefault; sym_kNodefault; sym_kDispId; sym_kGeneric; sym_kOperator;
   sym_kPublic; sym_kStatic; sym_kVirtual; sym_kAbstract; sym_kDynamic; sym_kOverride;
   sym_kOverload; sym_kReintroduce; sym_kStdcall; sym_kCdecl; sym_kCppdecl; sym_kPascal;
   sym_kRegister; sym_kMwpascal; sym_kMessage; sym_kDeprecated; sym_kExperimental; sym_kPlatform;
   sym_kUnimplemented; sym_kCvar; sym_kExport; sym_kFar; sym_kNear; sym_kSafecall;
   sym_kAssembler; sym_kNostackframe; sym_kInterrupt; sym_kNoreturn; sym_kIocheck; sym_kLocal;
   sym_kHardfloat; sym_kSoftfloat; sym_kMs_abi_default; sym_kMs_abi_cdecl; sym_kSaveregisters;
   sym_kSysv_abi_default; sym_kSysv_abi_cdecl; sym_kVectorcall; sym_kVarargs; sym_kWinapi;
   sym_kAlias; sym_kBegin; sym_kClass; sym_kConst; sym_kConstructor; sym_kDestructor;
   sym_kExports; sym_kFunction; sym_kInline; sym_kLabel; sym_kProcedure; sym_kResourcestring;
   sym_kThreadvar; sym_kType; sym_kUses; sym_kVar]].

(** State 2729. *)
Definition ts_parse_table_2729 : parse_row :=
  [ACTIONS 9810 [ts_builtin_sym_end; anon_sym_LBRACK; aux_sym_ppUsesBlock_token1];
   ACTIONS 3 [sym__space]; ACTIONS 5 [sym_ppDirective]; ACTIONS 3 [sym_comment];
   ACTIONS 9810 [sym_identifier; sym_kDefault; sym_kNodefault; sym_kDispId; sym_kGeneric;
   sym_kOperator; sym_kPublic; sym_kStatic; sym_kVirtual; sym_kAbstract; sym_kDynamic;
   sym_kOverride; sym_kOverload; sym_kReintroduce; sym_kStdcall; sym_kCdecl; sym_kCppdecl;
   sym_kPascal; sym_kRegister; sym_kMwpascal; sym_kMessage; sym_kDeprecated; sym_kExperimental;
   sym_kPlatform; sym_kUnimplemented; sym_kCvar; sym_kExport; sym_kFar; sym_kNear; sym_kSafecall;
   sym_kAssembler; sym_kNostackframe; sym_kInterrupt; sym_kNoreturn; sym_kIocheck; sym_kLocal;
   sym_kHardfloat; sym_kSoftfloat; sym_kMs_abi_default; sym_kMs_abi_cdecl; sym_kSaveregisters;
   sym_kSysv_abi_default; sym_kSysv_abi_cdecl; sym_kVectorcall; sym_kVarargs; sym_kWinapi;
   sym_kAlias; sym_kBegin; sym_kClass; sym_kConst; sym_kConstructor; sym_kDestructor;
   sym_kExports; sym_kFunction; sym_kLabel; sym_kProcedure; sym_kResourcestring; sym_kThreadvar;
   sym_kType; sym_kUses; sym_kVar]].

(** State 2730. *)
Definition ts_parse_table_2730 : parse_row :=
  [ACTIONS 11005 [ts_builtin_sym_end; anon_sym_LBRACK; aux_sym_ppUsesBlock_token1];
   ACTIONS 3 [sym__space]; ACTIONS 5 [sym_ppDirective]; ACTIONS 3 [sym_comment];
   ACTIONS 11005 [sym_identifier; sym_kDefault; sym_kNodefault; sym_kDispId; sym_kGeneric;
   sym_kOperator; sym_kPublic; sym_kStatic; sym_kVirtual; sym_kAbstract; sym_kDynamic;
   sym_kOverride; sym_kOverload; sym_kReintroduce; sym_kStdcall; sym_kCdecl; sym_kCppdecl;
   sym_kPascal; sym_kRegister; sym_kMwpascal; sym_kMessage; sym_kDeprecated; sym_kExperimental;
   sym_kPlatform; sym_kUnimplemented; sym_kCvar; sym_kExport; sym_kFar; sym_kNear; sym_kSafecall;
   sym_kAssembler; sym_kNostackframe; sym_kInterrupt; sym_kNoreturn; sym_kIocheck; sym_kLocal;
   sym_kHardfloat; sym_kSoftfloat; sym_kMs_abi_default; sym_kMs_abi_cdecl; sym_kSaveregisters;
   sym_kSysv_abi_default; sym_kSysv_abi_cdecl; sym_kVectorcall; sym_kVarargs; sym_kWinapi;
   sym_kAlias; sym_kBegin; sym_kClass; sym_kConst; sym_kConstructor; sym_kDestructor;
   sym_kExports; sym_kFunction; sym_kLabel; sym_kProcedure; sym_kResourcestring; sym_kThreadvar;
   sym_kType; sym_kUses; sym_kVar]].

(** State 2731. *)
Definition ts_parse_table_2731 : parse_row :=
  [ACTIONS 10622 [anon_sym_LBRACK; aux_sym_ppUsesBlock_token1]; ACTIONS 3 [sym__space];
   ACTIONS 5 [sym_ppDirective]; ACTIONS 3 [sym_comment]; ACTIONS 10622 [sym_kDefault;
   sym_kNodefault; sym_kDispId; sym_kGeneric; sym_kOperator; sym_kPublic; sym_kStatic;
   sym_kVirtual; sym_kAbstract; sym_kDynamic; sym_kOverride; sym_kOverload; sym_kReintroduce;
   sym_kStdcall; sym_kCdecl; sym_kCppdecl; sym_kPascal; sym_kRegister; sym_kMwpascal;
   sym_kMessage; sym_kDeprecated; sym_kExperimental; sym_kPlatform; sym_kUnimplemented;
   sym_kCvar; sym_kExport; sym_kFar; sym_kNear; sym_kSafecall; sym_kAssembler; sym_kNostackframe;
   sym_kInterrupt; sym_kNoreturn; sym_kIocheck; sym_kLocal; sym_kHardfloat; sym_kSoftfloat;
   sym_kMs_abi_default; sym_kMs_abi_cdecl; sym_kSaveregisters; sym_kSysv_abi_default;
   sym_kSysv_abi_cdecl; sym_kVectorcall; sym_kVarargs; sym_kWinapi; sym_kAlias; sym_kBegin;
   sym_kClass; sym_kConst; sym_kConstructor; sym_kDestructor; sym_kEnd; sym_kExports;
   sym_kFunction; sym_kInline; sym_kLabel; sym_kProcedure; sym_kResourcestring; sym_kThreadvar;
   sym_kType; sym_kUses; sym_kVar]].

(** State 2732. *)
Definition ts_parse_table_2732 : parse_row :=
  [ACTIONS 10566 [anon_sym_LBRACK; aux_sym_ppUsesBlock_token1]; ACTIONS 3 [sym__space];
   ACTIONS 5 [sym_ppDirective]; ACTIONS 3 [sym_comment]; ACTIONS 10566 [sym_kDefault;
   sym_kNodefault; sym_kDispId; sym_kGeneric; sym_kOperator; sym_kPublic; sym_kStatic;
   sym_kVirtual; sym_kAbstract; sym_kDynamic; sym_kOverride; sym_kOverload; sym_kReintroduce;
   sym_kStdcall; sym_kCdecl; sym_kCppdecl; sym_kPascal; sym_kRegister; sym_kMwpascal;
   sym_kMessage; sym_kDeprecated; sym_kExperimental; sym_kPlatform; sym_kUnimplemented;
   sym_kCvar; sym_kExport; sym_kFar; sym_kNear; sym_kSafecall; sym_kAssembler; sym_kNostackframe;
   sym_kInterrupt; sym_kNoreturn; sym_kIocheck; sym_kLocal; sym_kHardfloat; sym_kSoftfloat;
   sym_kMs_abi_default; sym_kMs_abi_cdecl; sym_kSaveregisters; sym_kSysv_abi_default;
   sym_kSysv_abi_cdecl; sym_kVectorcall; sym_kVarargs; sym_kWinapi; sym_kAlias; sym_kBegin;
   sym_kClass; sym_kConst; sym_kConstructor; sym_kDestructor; sym_kEnd; sym_kExports;
   sym_kFunction; sym_kInline; sym_kLabel; sym_kProcedure; sym_kResourcestring; sym_kThreadvar;
   sym_kType; sym_kUses; sym_kVar]].

(** State 2733. *)
Definition ts_parse_table_2733 : parse_row :=
  [ACTIONS 10622 [ts_builtin_sym_end; anon_sym_LBRACK; aux_sym_ppUsesBlock_token1];
   ACTIONS 3 [sym__space]; ACTIONS 5 [sym_ppDirective]; ACTIONS 3 [sym_comment];
   ACTIONS 10622 [sym_kDefault; sym_kNodefault; sym_kDispId; sym_kGeneric; sym_kOperator;
   sym_kPublic; sym_kStatic; sym_kVirtual; sym_kAbstract; sym_kDynamic; sym_kOverride;
   sym_kOverload; sym_kReintroduce; sym_kStdcall; sym_kCdecl; sym_kCppdecl; sym_kPascal;
   sym_kRegister; sym_kMwpascal; sym_kMessage; sym_kDeprecated; sym_kExperimental; sym_kPlatform;
   sym_kUnimplemented; sym_kCvar; sym_kExport; sym_kFar; sym_kNear; sym_kSafecall;
   sym_kAssembler; sym_kNostackframe; sym_kInterrupt; sym_kNoreturn; sym_kIocheck; sym_kLocal;
   sym_kHardfloat; sym_kSoftfloat; sym_kMs_abi_default; sym_kMs_abi_cdecl; sym_kSaveregisters;
   sym_kSysv_abi_default; sym_kSysv_abi_cdecl; sym_kVectorcall; sym_kVarargs; sym_kWinapi;
   sym_kAlias; sym_kBegin; sym_kClass; sym_kConst; sym_kConstructor; sym_kDestructor;
   sym_kExports; sym_kFunction; sym_kInline; sym_kLabel; sym_kProcedure; sym_kResourcestring;
   sym_kThreadvar; sym_kType; sym_kUses; sym_kVar]].

(** State 2734. *)
Definition ts_parse_table_2734 : parse_row :=
  [ACTIONS 9868 [anon_sym_LBRACK; aux_sym_ppUsesBlock_token1]; ACTIONS 3 [sym__space];
   ACTIONS 5 [sym_ppDirective]; ACTIONS 3 [sym_comment]; ACTIONS 9868 [sym_kDefault;
   sym_kNodefault; sym_kDispId; sym_kGeneric; sym_kOperator; sym_kPublic; sym_kStatic;
   sym_kVirtual; sym_kAbstract; sym_kDynamic; sym_kOverride; sym_kOverload; sym_kReintroduce;
   sym_kStdcall; sym_kCdecl; sym_kCppdecl; sym_kPascal; sym_kRegister; sym_kMwpascal;
   sym_kMessage; sym_kDeprecated; sym_kExperimental; sym_kPlatform; sym_kUnimplemented;
   sym_kCvar; sym_kExport; sym_kFar; sym_kNear; sym_kSafecall; sym_kAssembler; sym_kNostackframe;
   sym_kInterrupt; sym_kNoreturn; sym_kIocheck; sym_kLocal; sym_kHardfloat; sym_kSoftfloat;
   sym_kMs_abi_default; sym_kMs_abi_cdecl; sym_kSaveregisters; sym_kSysv_abi_default;
   sym_kSysv_abi_cdecl; sym_kVectorcall; sym_kVarargs; sym_kWinapi; sym_kAlias; sym_kAsm;
   sym_kBegin; sym_kClass; sym_kConst; sym_kConstructor; sym_kDestructor; sym_kExports;
   sym_kFunction; sym_kInline; sym_kLabel; sym_kProcedure; sym_kResourcestring; sym_kThreadvar;
   sym_kType; sym_kUses; sym_kVar]].

(** State 2735. *)
Definition ts_parse_table_2735 : parse_row :=
  [ACTIONS 9910 [anon_sym_LBRACK; aux_sym_ppUsesBlock_token1]; ACTIONS 3 [sym__space];
   ACTIONS 5 [sym_ppDirective]; ACTIONS 3 [sym_comment]; ACTIONS 9910 [sym_kDefault;
   sym_kNodefault; sym_kDispId; sym_kGeneric; sym_kOperator; sym_kPublic; sym_kStatic;
   sym_kVirtual; sym_kAbstract; sym_kDynamic; sym_kOverride; sym_kOverload; sym_kReintroduce;
   sym_kStdcall; sym_kCdecl; sym_kCppdecl; sym_kPascal; sym_kRegister; sym_kMwpascal;
   sym_kMessage; sym_kDeprecated; sym_kExperimental; sym_kPlatform; sym_kUnimplemented;
   sym_kCvar; sym_kExport; sym_kFar; sym_kNear; sym_kSafecall; sym_kAssembler; sym_kNostackframe;
   sym_kInterrupt; sym_kNoreturn; sym_kIocheck; sym_kLocal; sym_kHardfloat; sym_kSoftfloat;
   sym_kMs_abi_default; sym_kMs_abi_cdecl; sym_kSaveregisters; sym_kSysv_abi_default;
   sym_kSysv_abi_cdecl; sym_kVectorcall; sym_kVarargs; sym_kWinapi; sym_kAlias; sym_kAsm;
   sym_kBegin; sym_kClass; sym_kConst; sym_kConstructor; sym_kDestructor; sym_kExports;
   sym_kFunction; sym_kInline; sym_kLabel; sym_kProcedure; sym_kResourcestring; sym_kThreadvar;
   sym_kType; sym_kUses; sym_kVar]].

(** State 2736. *)
Definition ts_parse_table_2736 : parse_row :=
  [STATE 6005 [sym__expr; sym_exprConditional]; STATE 5828 [sym__ref; sym_lambda; sym_inherited;
   sym_exprDot; sym_exprDeref; sym_exprAs; sym_exprTpl; sym_exprSubscript; sym_exprCall];
   STATE 6005 [sym_exprBinary; sym_exprUnary]; STATE 5828 [sym_exprParens; sym_exprBrackets;
   sym__literal; sym_literalString]; STATE 3840 [sym__literalString; sym_literalChar];
   STATE 5828 [sym_literalNumber]; STATE 5943 [sym__literalInt; sym__literalFloat];
   STATE 3840 [aux_sym_literalString_repeat1]; ACTIONS 14821 [anon_sym_LBRACK];
   ACTIONS 14823 [anon_sym_LPAREN]; ACTIONS 14825 [aux_sym__literalString_token1];
   ACTIONS 14827 [anon_sym_POUND]; ACTIONS 14829 [aux_sym__literalInt_token1];
   ACTIONS 14831 [aux_sym__literalInt_token2; aux_sym__literalInt_token3];
   ACTIONS 14829 [aux_sym__literalFloat_token1]; ACTIONS 14765 [aux_sym_ppUsesBlock_token1];
   ACTIONS 14833 [sym_kAdd; sym_kSub]; ACTIONS 14835 [sym_kAt]; ACTIONS 14837 [sym_kTrue;
   sym_kFalse]; ACTIONS 3 [sym__space]; ACTIONS 5 [sym_ppDirective]; ACTIONS 3 [sym_comment];
   ACTIONS 14837 [sym_ppFragmentExpr]; ACTIONS 14825 [sym__literalStringMultiline];
   ACTIONS 14837 [sym_identifier]; ACTIONS 14765 [sym_kGeneric]; ACTIONS 14839 [sym_kSpecialize];
   ACTIONS 14765 [sym_kOperator; sym_kAsm; sym_kBegin; sym_kClass; sym_kConst; sym_kConstructor;
   sym_kDestructor; sym_kExports]; ACTIONS 14841 [sym_kFunction]; ACTIONS 14843 [sym_kIf];
   ACTIONS 14845 [sym_kInherited]; ACTIONS 14765 [sym_kLabel]; ACTIONS 14837 [sym_kNil];
   ACTIONS 14835 [sym_kNot]; ACTIONS 14841 [sym_kProcedure]; ACTIONS 14765 [sym_kResourcestring];
   ACTIONS 14847 [sym_kString]; ACTIONS 14765 [sym_kThreadvar; sym_kType; sym_kUses; sym_kVar]].

(** State 2737. *)
Definition ts_parse_table_2737 : parse_row :=
  [STATE 6063 [sym__expr; sym_exprConditional]; STATE 5828 [sym__ref; sym_lambda; sym_inherited;
   sym_exprDot; sym_exprDeref; sym_exprAs; sym_exprTpl; sym_exprSubscript; sym_exprCall];
   STATE 6063 [sym_exprBinary; sym_exprUnary]; STATE 5828 [sym_exprParens; sym_exprBrackets;
   sym__literal; sym_literalString]; STATE 3840 [sym__literalString; sym_literalChar];
   STATE 5828 [sym_literalNumber]; STATE 5943 [sym__literalInt; sym__literalFloat];
   STATE 3840 [aux_sym_literalString_repeat1]; ACTIONS 14821 [anon_sym_LBRACK];
   ACTIONS 14823 [anon_sym_LPAREN]; ACTIONS 14825 [aux_sym__literalString_token1];
   ACTIONS 14827 [anon_sym_POUND]; ACTIONS 14829 [aux_sym__literalInt_token1];
   ACTIONS 14831 [aux_sym__literalInt_token2; aux_sym__literalInt_token3];
   ACTIONS 14829 [aux_sym__literalFloat_token1]; ACTIONS 14747 [aux_sym_ppUsesBlock_token1];
   ACTIONS 14833 [sym_kAdd; sym_kSub]; ACTIONS 14835 [sym_kAt]; ACTIONS 14837 [sym_kTrue;
   sym_kFalse]; ACTIONS 3 [sym__space]; ACTIONS 5 [sym_ppDirective]; ACTIONS 3 [sym_comment];
   ACTIONS 14837 [sym_ppFragmentExpr]; ACTIONS 14825 [sym__literalStringMultiline];
   ACTIONS 14837 [sym_identifier]; ACTIONS 14747 [sym_kGeneric]; ACTIONS 14839 [sym_kSpecialize];
   ACTIONS 14747 [sym_kOperator; sym_kAsm; sym_kBegin; sym_kClass; sym_kConst; sym_kConstructor;
   sym_kDestructor; sym_kExports]; ACTIONS 14841 [sym_kFunction]; ACTIONS 14843 [sym_kIf];
   ACTIONS 14845 [sym_kInherited]; ACTIONS 14747 [sym_kLabel]; ACTIONS 14837 [sym_kNil];
   ACTIONS 14835 [sym_kNot]; ACTIONS 14841 [sym_kProcedure]; ACTIONS 14747 [sym_kResourcestring];
   ACTIONS 14847 [sym_kString]; ACTIONS 14747 [sym_kThreadvar; sym_kType; sym_kUses; sym_kVar]].

(** State 2738. *)
Definition ts_parse_table_2738 : parse_row :=
  [STATE 14944 [sym_type]; STATE 12384 [sym__anonymousRecord; sym_declSubRange];
   STATE 11313 [sym__subRangeBound]; STATE 10620 [sym__subRangeCall];
   STATE 10605 [sym__subRangeUnary]; STATE 10614 [sym__subRangeBinary];
   STATE 12384 [sym_typeref]; STATE 10505 [sym__typeref; sym_typerefDot; sym_typerefTpl;
   sym_typerefPtr]; STATE 11313 [sym_literalString]; STATE 10482 [sym__literalString;
   sym_literalChar]; STATE 11313 [sym_literalNumber]; STATE 10647 [sym__literalInt;
   sym__literalFloat]; STATE 3870 [sym__ppIf]; STATE 12384 [sym_declEnum; sym_declSet;
   sym_declArray; sym_declFile; sym_declString; sym_declProcRef; sym_declMetaClass];
   STATE 14944 [sym_declClass; sym_declIntf; sym_declHelper];
   STATE 10482 [aux_sym_literalString_repeat1]; ACTIONS 14849 [anon_sym_LPAREN];
   ACTIONS 14851 [aux_sym__literalString_token1]; ACTIONS 14853 [anon_sym_POUND];
   ACTIONS 14855 [aux_sym__literalInt_token1]; ACTIONS 14857 [aux_sym__literalInt_token2;
   aux_sym__literalInt_token3]; ACTIONS 14855 [aux_sym__literalFloat_token1];
   ACTIONS 14859 [aux_sym_ppUsesBlock_token1]; ACTIONS 14861 [sym_kAdd; sym_kSub];
   ACTIONS 14863 [sym_kHat]; ACTIONS 3 [sym__space]; ACTIONS 5 [sym_ppDirective];
   ACTIONS 3 [sym_comment]; ACTIONS 14865 [sym_ppFragmentExpr];
   ACTIONS 14851 [sym__literalStringMultiline]; ACTIONS 14867 [sym_identifier];
   ACTIONS 14869 [sym_kObjcclass; sym_kObjccategory; sym_kObjcprotocol];
   ACTIONS 14871 [sym_kSpecialize]; ACTIONS 14873 [sym_kReference]; ACTIONS 14875 [sym_kArray];
   ACTIONS 14877 [sym_kClass]; ACTIONS 14879 [sym_kDispInterface]; ACTIONS 14881 [sym_kFile];
   ACTIONS 14883 [sym_kFunction]; ACTIONS 14879 [sym_kInterface]; ACTIONS 14869 [sym_kObject];
   ACTIONS 14885 [sym_kPacked]; ACTIONS 14883 [sym_kProcedure]; ACTIONS 14887 [sym_kRecord];
   ACTIONS 14889 [sym_kSet]; ACTIONS 14891 [sym_kString]; ACTIONS 14893 [sym_kType]].

(** State 2739. *)
Definition ts_parse_table_2739 : parse_row :=
  [STATE 15394 [sym_type]; STATE 12384 [sym__anonymousRecord; sym_declSubRange];
   STATE 11313 [sym__subRangeBound]; STATE 10620 [sym__subRangeCall];
   STATE 10605 [sym__subRangeUnary]; STATE 10614 [sym__subRangeBinary];
   STATE 12384 [sym_typeref]; STATE 10505 [sym__typeref; sym_typerefDot; sym_typerefTpl;
   sym_typerefPtr]; STATE 11313 [sym_literalString]; STATE 10482 [sym__literalString;
   sym_literalChar]; STATE 11313 [sym_literalNumber]; STATE 10647 [sym__literalInt;
   sym__literalFloat]; STATE 3870 [sym__ppIf]; STATE 12384 [sym_declEnum; sym_declSet;
   sym_declArray; sym_declFile; sym_declString; sym_declProcRef; sym_declMetaClass];
   STATE 15394 [sym_declClass; sym_declIntf; sym_declHelper];
   STATE 10482 [aux_sym_literalString_repeat1]; ACTIONS 14849 [anon_sym_LPAREN];
   ACTIONS 14851 [aux_sym__literalString_token1]; ACTIONS 14853 [anon_sym_POUND];
   ACTIONS 14855 [aux_sym__literalInt_token1]; ACTIONS 14857 [aux_sym__literalInt_token2;
   aux_sym__literalInt_token3]; ACTIONS 14855 [aux_sym__literalFloat_token1];
   ACTIONS 14859 [aux_sym_ppUsesBlock_token1]; ACTIONS 14861 [sym_kAdd; sym_kSub];
   ACTIONS 14863 [sym_kHat]; ACTIONS 3 [sym__space]; ACTIONS 5 [sym_ppDirective];
   ACTIONS 3 [sym_comment]; ACTIONS 14865 [sym_ppFragmentExpr];
   ACTIONS 14851 [sym__literalStringMultiline]; ACTIONS 14867 [sym_identifier];
   ACTIONS 14869 [sym_kObjcclass; sym_kObjccategory; sym_kObjcprotocol];
   ACTIONS 14871 [sym_kSpecialize]; ACTIONS 14873 [sym_kReference]; ACTIONS 14875 [sym_kArray];
   ACTIONS 14877 [sym_kClass]; ACTIONS 14879 [sym_kDispInterface]; ACTIONS 14881 [sym_kFile];
   ACTIONS 14883 [sym_kFunction]; ACTIONS 14879 [sym_kInterface]; ACTIONS 14869 [sym_kObject];
   ACTIONS 14885 [sym_kPacked]; ACTIONS 14883 [sym_kProcedure]; ACTIONS 14887 [sym_kRecord];
   ACTIONS 14889 [sym_kSet]; ACTIONS 14891 [sym_kString]; ACTIONS 14895 [sym_kType]].

(** State 2740. *)
Definition ts_parse_table_2740 : parse_row :=
  [STATE 15023 [sym_type]; STATE 12384 [sym__anonymousRecord; sym_declSubRange];
   STATE 11313 [sym__subRangeBound]; STATE 10620 [sym__subRangeCall];
   STATE 10605 [sym__subRangeUnary]; STATE 10614 [sym__subRangeBinary];
   STATE 12384 [sym_typeref]; STATE 10505 [sym__typeref; sym_typerefDot; sym_typerefTpl;
   sym_typerefPtr]; STATE 11313 [sym_literalString]; STATE 10482 [sym__literalString;
   sym_literalChar]; STATE 11313 [sym_literalNumber]; STATE 10647 [sym__literalInt;
   sym__literalFloat]; STATE 3870 [sym__ppIf]; STATE 12384 [sym_declEnum; sym_declSet;
   sym_declArray; sym_declFile; sym_declString; sym_declProcRef; sym_declMetaClass];
   STATE 15023 [sym_declClass; sym_declIntf; sym_declHelper];
   STATE 10482 [aux_sym_literalString_repeat1]; ACTIONS 14849 [anon_sym_LPAREN];
   ACTIONS 14851 [aux_sym__literalString_token1]; ACTIONS 14853 [anon_sym_POUND];
   ACTIONS 14855 [aux_sym__literalInt_token1]; ACTIONS 14857 [aux_sym__literalInt_token2;
   aux_sym__literalInt_token3]; ACTIONS 14855 [aux_sym__literalFloat_token1];
   ACTIONS 14859 [aux_sym_ppUsesBlock_token1]; ACTIONS 14861 [sym_kAdd; sym_kSub];
   ACTIONS 14863 [sym_kHat]; ACTIONS 3 [sym__space]; ACTIONS 5 [sym_ppDirective];
   ACTIONS 3 [sym_comment]; ACTIONS 14865 [sym_ppFragmentExpr];
   ACTIONS 14851 [sym__literalStringMultiline]; ACTIONS 14867 [sym_identifier];
   ACTIONS 14869 [sym_kObjcclass; sym_kObjccategory; sym_kObjcprotocol];
   ACTIONS 14871 [sym_kSpecialize]; ACTIONS 14873 [sym_kReference]; ACTIONS 14875 [sym_kArray];
   ACTIONS 14877 [sym_kClass]; ACTIONS 14879 [sym_kDispInterface]; ACTIONS 14881 [sym_kFile];
   ACTIONS 14883 [sym_kFunction]; ACTIONS 14879 [sym_kInterface]; ACTIONS 14869 [sym_kObject];
   ACTIONS 14885 [sym_kPacked]; ACTIONS 14883 [sym_kProcedure]; ACTIONS 14887 [sym_kRecord];
   ACTIONS 14889 [sym_kSet]; ACTIONS 14891 [sym_kString]; ACTIONS 14897 [sym_kType]].

(** State 2741. *)
Definition ts_parse_table_2741 : parse_row :=
  [STATE 14336 [sym_type]; STATE 12384 [sym__anonymousRecord; sym_declSubRange];
   STATE 11313 [sym__subRangeBound]; STATE 10620 [sym__subRangeCall];
   STATE 10605 [sym__subRangeUnary]; STATE 10614 [sym__subRangeBinary];
   STATE 12384 [sym_typeref]; STATE 10505 [sym__typeref; sym_typerefDot; sym_typerefTpl;
   sym_typerefPtr]; STATE 11313 [sym_literalString]; STATE 10482 [sym__literalString;
   sym_literalChar]; STATE 11313 [sym_literalNumber]; STATE 10647 [sym__literalInt;
   sym__literalFloat]; STATE 3870 [sym__ppIf]; STATE 12384 [sym_declEnum; sym_declSet;
   sym_declArray; sym_declFile; sym_declString; sym_declProcRef; sym_declMetaClass];
   STATE 14336 [sym_declClass; sym_declIntf; sym_declHelper];
   STATE 10482 [aux_sym_literalString_repeat1]; ACTIONS 14849 [anon_sym_LPAREN];
   ACTIONS 14851 [aux_sym__literalString_token1]; ACTIONS 14853 [anon_sym_POUND];
   ACTIONS 14855 [aux_sym__literalInt_token1]; ACTIONS 14857 [aux_sym__literalInt_token2;
   aux_sym__literalInt_token3]; ACTIONS 14855 [aux_sym__literalFloat_token1];
   ACTIONS 14859 [aux_sym_ppUsesBlock_token1]; ACTIONS 14861 [sym_kAdd; sym_kSub];
   ACTIONS 14863 [sym_kHat]; ACTIONS 3 [sym__space]; ACTIONS 5 [sym_ppDirective];
   ACTIONS 3 [sym_comment]; ACTIONS 14865 [sym_ppFragmentExpr];
   ACTIONS 14851 [sym__literalStringMultiline]; ACTIONS 14867 [sym_identifier];
   ACTIONS 14869 [sym_kObjcclass; sym_kObjccategory; sym_kObjcprotocol];
   ACTIONS 14871 [sym_kSpecialize]; ACTIONS 14873 [sym_kReference]; ACTIONS 14875 [sym_kArray];
   ACTIONS 14877 [sym_kClass]; ACTIONS 14879 [sym_kDispInterface]; ACTIONS 14881 [sym_kFile];
   ACTIONS 14883 [sym_kFunction]; ACTIONS 14879 [sym_kInterface]; ACTIONS 14869 [sym_kObject];
   ACTIONS 14885 [sym_kPacked]; ACTIONS 14883 [sym_kProcedure]; ACTIONS 14887 [sym_kRecord];
   ACTIONS 14889 [sym_kSet]; ACTIONS 14891 [sym_kString]; ACTIONS 14899 [sym_kType]].

(** State 2742. *)
Definition ts_parse_table_2742 : parse_row :=
  [STATE 15099 [sym_type]; STATE 12384 [sym__anonymousRecord; sym_declSubRange];
   STATE 11313 [sym__subRangeBound]; STATE 10620 [sym__subRangeCall];
   STATE 10605 [sym__subRangeUnary]; STATE 10614 [sym__subRangeBinary];
   STATE 12384 [sym_typeref]; STATE 10505 [sym__typeref; sym_typerefDot; sym_typerefTpl;
   sym_typerefPtr]; STATE 11313 [sym_literalString]; STATE 10482 [sym__literalString;
   sym_literalChar]; STATE 11313 [sym_literalNumber]; STATE 10647 [sym__literalInt;
   sym__literalFloat]; STATE 3870 [sym__ppIf]; STATE 12384 [sym_declEnum; sym_declSet;
   sym_declArray; sym_declFile; sym_declString; sym_declProcRef; sym_declMetaClass];
   STATE 15099 [sym_declClass; sym_declIntf; sym_declHelper];
   STATE 10482 [aux_sym_literalString_repeat1]; ACTIONS 14849 [anon_sym_LPAREN];
   ACTIONS 14851 [aux_sym__literalString_token1]; ACTIONS 14853 [anon_sym_POUND];
   ACTIONS 14855 [aux_sym__literalInt_token1]; ACTIONS 14857 [aux_sym__literalInt_token2;
   aux_sym__literalInt_token3]; ACTIONS 14855 [aux_sym__literalFloat_token1];
   ACTIONS 14859 [aux_sym_ppUsesBlock_token1]; ACTIONS 14861 [sym_kAdd; sym_kSub];
   ACTIONS 14863 [sym_kHat]; ACTIONS 3 [sym__space]; ACTIONS 5 [sym_ppDirective];
   ACTIONS 3 [sym_comment]; ACTIONS 14865 [sym_ppFragmentExpr];
   ACTIONS 14851 [sym__literalStringMultiline]; ACTIONS 14867 [sym_identifier];
   ACTIONS 14869 [sym_kObjcclass; sym_kObjccategory; sym_kObjcprotocol];
   ACTIONS 14871 [sym_kSpecialize]; ACTIONS 14873 [sym_kReference]; ACTIONS 14875 [sym_kArray];
   ACTIONS 14877 [sym_kClass]; ACTIONS 14879 [sym_kDispInterface]; ACTIONS 14881 [sym_kFile];
   ACTIONS 14883 [sym_kFunction]; ACTIONS 14879 [sym_kInterface]; ACTIONS 14869 [sym_kObject];
   ACTIONS 14885 [sym_kPacked]; ACTIONS 14883 [sym_kProcedure]; ACTIONS 14887 [sym_kRecord];
   ACTIONS 14889 [sym_kSet]; ACTIONS 14891 [sym_kString]; ACTIONS 14901 [sym_kType]].

(** State 2743. *)
Definition ts_parse_table_2743 : parse_row :=
  [STATE 15737 [sym_type]; STATE 12384 [sym__anonymousRecord; sym_declSubRange];
   STATE 11313 [sym__subRangeBound]; STATE 10620 [sym__subRangeCall];
   STATE 10605 [sym__subRangeUnary]; STATE 10614 [sym__subRangeBinary];
   STATE 12384 [sym_typeref]; STATE 10505 [sym__typeref; sym_typerefDot; sym_typerefTpl;
   sym_typerefPtr]; STATE 11313 [sym_literalString]; STATE 10482 [sym__literalString;
   sym_literalChar]; STATE 11313 [sym_literalNumber]; STATE 10647 [sym__literalInt;
   sym__literalFloat]; STATE 3870 [sym__ppIf]; STATE 12384 [sym_declEnum; sym_declSet;
   sym_declArray; sym_declFile; sym_declString; sym_declProcRef; sym_declMetaClass];
   STATE 15737 [sym_declClass; sym_declIntf; sym_declHelper];
   STATE 10482 [aux_sym_literalString_repeat1]; ACTIONS 14849 [anon_sym_LPAREN];
   ACTIONS 14851 [aux_sym__literalString_token1]; ACTIONS 14853 [anon_sym_POUND];
   ACTIONS 14855 [aux_sym__literalInt_token1]; ACTIONS 14857 [aux_sym__literalInt_token2;
   aux_sym__literalInt_token3]; ACTIONS 14855 [aux_sym__literalFloat_token1];
   ACTIONS 14859 [aux_sym_ppUsesBlock_token1]; ACTIONS 14861 [sym_kAdd; sym_kSub];
   ACTIONS 14863 [sym_kHat]; ACTIONS 3 [sym__space]; ACTIONS 5 [sym_ppDirective];
   ACTIONS 3 [sym_comment]; ACTIONS 14865 [sym_ppFragmentExpr];
   ACTIONS 14851 [sym__literalStringMultiline]; ACTIONS 14867 [sym_identifier];
   ACTIONS 14869 [sym_kObjcclass; sym_kObjccategory; sym_kObjcprotocol];
   ACTIONS 14871 [sym_kSpecialize]; ACTIONS 14873 [sym_kReference]; ACTIONS 14875 [sym_kArray];
   ACTIONS 14877 [sym_kClass]; ACTIONS 14879 [sym_kDispInterface]; ACTIONS 14881 [sym_kFile];
   ACTIONS 14883 [sym_kFunction]; ACTIONS 14879 [sym_kInterface]; ACTIONS 14869 [sym_kObject];
   ACTIONS 14885 [sym_kPacked]; ACTIONS 14883 [sym_kProcedure]; ACTIONS 14887 [sym_kRecord];
   ACTIONS 14889 [sym_kSet]; ACTIONS 14891 [sym_kString]; ACTIONS 14903 [sym_kType]].

(** State 2744. *)
Definition ts_parse_table_2744 : parse_row :=
  [STATE 15015 [sym_type]; STATE 12384 [sym__anonymousRecord; sym_declSubRange];
   STATE 11313 [sym__subRangeBound]; STATE 10620 [sym__subRangeCall];
   STATE 10605 [sym__subRangeUnary]; STATE 10614 [sym__subRangeBinary];
   STATE 12384 [sym_typeref]; STATE 10505 [sym__typeref; sym_typerefDot; sym_typerefTpl;
   sym_typerefPtr]; STATE 11313 [sym_literalString]; STATE 10482 [sym__literalString;
   sym_literalChar]; STATE 11313 [sym_literalNumber]; STATE 10647 [sym__literalInt;
   sym__literalFloat]; STATE 3870 [sym__ppIf]; STATE 12384 [sym_declEnum; sym_declSet;
   sym_declArray; sym_declFile; sym_declString; sym_declProcRef; sym_declMetaClass];
   STATE 15015 [sym_declClass; sym_declIntf; sym_declHelper];
   STATE 10482 [aux_sym_literalString_repeat1]; ACTIONS 14849 [anon_sym_LPAREN];
   ACTIONS 14851 [aux_sym__literalString_token1]; ACTIONS 14853 [anon_sym_POUND];
   ACTIONS 14855 [aux_sym__literalInt_token1]; ACTIONS 14857 [aux_sym__literalInt_token2;
   aux_sym__literalInt_token3]; ACTIONS 14855 [aux_sym__literalFloat_token1];
   ACTIONS 14859 [aux_sym_ppUsesBlock_token1]; ACTIONS 14861 [sym_kAdd; sym_kSub];
   ACTIONS 14863 [sym_kHat]; ACTIONS 3 [sym__space]; ACTIONS 5 [sym_ppDirective];
   ACTIONS 3 [sym_comment]; ACTIONS 14865 [sym_ppFragmentExpr];
   ACTIONS 14851 [sym__literalStringMultiline]; ACTIONS 14867 [sym_identifier];
   ACTIONS 14869 [sym_kObjcclass; sym_kObjccategory; sym_kObjcprotocol];
   ACTIONS 14871 [sym_kSpecialize]; ACTIONS 14873 [sym_kReference]; ACTIONS 14875 [sym_kArray];
   ACTIONS 14877 [sym_kClass]; ACTIONS 14879 [sym_kDispInterface]; ACTIONS 14881 [sym_kFile];
   ACTIONS 14883 [sym_kFunction]; ACTIONS 14879 [sym_kInterface]; ACTIONS 14869 [sym_kObject];
   ACTIONS 14885 [sym_kPacked]; ACTIONS 14883 [sym_kProcedure]; ACTIONS 14887 [sym_kRecord];
   ACTIONS 14889 [sym_kSet]; ACTIONS 14891 [sym_kString]; ACTIONS 14905 [sym_kType]].

(** State 2745. *)
Definition ts_parse_table_2745 : parse_row :=
  [STATE 15277 [sym_type]; STATE 12384 [sym__anonymousRecord; sym_declSubRange];
   STATE 11313 [sym__subRangeBound]; STATE 10620 [sym__subRangeCall];
   STATE 10605 [sym__subRangeUnary]; STATE 10614 [sym__subRangeBinary];
   STATE 12384 [sym_typeref]; STATE 10505 [sym__typeref; sym_typerefDot; sym_typerefTpl;
   sym_typerefPtr]; STATE 11313 [sym_literalString]; STATE 10482 [sym__literalString;
   sym_literalChar]; STATE 11313 [sym_literalNumber]; STATE 10647 [sym__literalInt;
   sym__literalFloat]; STATE 3870 [sym__ppIf]; STATE 12384 [sym_declEnum; sym_declSet;
   sym_declArray; sym_declFile; sym_declString; sym_declProcRef; sym_declMetaClass];
   STATE 15277 [sym_declClass; sym_declIntf; sym_declHelper];
   STATE 10482 [aux_sym_literalString_repeat1]; ACTIONS 14849 [anon_sym_LPAREN];
   ACTIONS 14851 [aux_sym__literalString_token1]; ACTIONS 14853 [anon_sym_POUND];
   ACTIONS 14855 [aux_sym__literalInt_token1]; ACTIONS 14857 [aux_sym__literalInt_token2;
   aux_sym__literalInt_token3]; ACTIONS 14855 [aux_sym__literalFloat_token1];
   ACTIONS 14859 [aux_sym_ppUsesBlock_token1]; ACTIONS 14861 [sym_kAdd; sym_kSub];
   ACTIONS 14863 [sym_kHat]; ACTIONS 3 [sym__space]; ACTIONS 5 [sym_ppDirective];
   ACTIONS 3 [sym_comment]; ACTIONS 14865 [sym_ppFragmentExpr];
   ACTIONS 14851 [sym__literalStringMultiline]; ACTIONS 14867 [sym_identifier];
   ACTIONS 14869 [sym_kObjcclass; sym_kObjccategory; sym_kObjcprotocol];
   ACTIONS 14871 [sym_kSpecialize]; ACTIONS 14873 [sym_kReference]; ACTIONS 14875 [sym_kArray];
   ACTIONS 14877 [sym_kClass]; ACTIONS 14879 [sym_kDispInterface]; ACTIONS 14881 [sym_kFile];
   ACTIONS 14883 [sym_kFunction]; ACTIONS 14879 [sym_kInterface]; ACTIONS 14869 [sym_kObject];
   ACTIONS 14885 [sym_kPacked]; ACTIONS 14883 [sym_kProcedure]; ACTIONS 14887 [sym_kRecord];
   ACTIONS 14889 [sym_kSet]; ACTIONS 14891 [sym_kString]; ACTIONS 14907 [sym_kType]].

(** State 2746. *)
Definition ts_parse_table_2746 : parse_row :=
  [STATE 14573 [sym_type]; STATE 12384 [sym__anonymousRecord; sym_declSubRange];
   STATE 11313 [sym__subRangeBound]; STATE 10620 [sym__subRangeCall];
   STATE 10605 [sym__subRangeUnary]; STATE 10614 [sym__subRangeBinary];
   STATE 12384 [sym_typeref]; STATE 10505 [sym__typeref; sym_typerefDot; sym_typerefTpl;
   sym_typerefPtr]; STATE 11313 [sym_literalString]; STATE 10482 [sym__literalString;
   sym_literalChar]; STATE 11313 [sym_literalNumber]; STATE 10647 [sym__literalInt;
   sym__literalFloat]; STATE 3870 [sym__ppIf]; STATE 12384 [sym_declEnum; sym_declSet;
   sym_declArray; sym_declFile; sym_declString; sym_declProcRef; sym_declMetaClass];
   STATE 14573 [sym_declClass; sym_declIntf; sym_declHelper];
   STATE 10482 [aux_sym_literalString_repeat1]; ACTIONS 14849 [anon_sym_LPAREN];
   ACTIONS 14851 [aux_sym__literalString_token1]; ACTIONS 14853 [anon_sym_POUND];
   ACTIONS 14855 [aux_sym__literalInt_token1]; ACTIONS 14857 [aux_sym__literalInt_token2;
   aux_sym__literalInt_token3]; ACTIONS 14855 [aux_sym__literalFloat_token1];
   ACTIONS 14859 [aux_sym_ppUsesBlock_token1]; ACTIONS 14861 [sym_kAdd; sym_kSub];
   ACTIONS 14863 [sym_kHat]; ACTIONS 3 [sym__space]; ACTIONS 5 [sym_ppDirective];
   ACTIONS 3 [sym_comment]; ACTIONS 14865 [sym_ppFragmentExpr];
   ACTIONS 14851 [sym__literalStringMultiline]; ACTIONS 14867 [sym_identifier];
   ACTIONS 14869 [sym_kObjcclass; sym_kObjccategory; sym_kObjcprotocol];
   ACTIONS 14871 [sym_kSpecialize]; ACTIONS 14873 [sym_kReference]; ACTIONS 14875 [sym_kArray];
   ACTIONS 14877 [sym_kClass]; ACTIONS 14879 [sym_kDispInterface]; ACTIONS 14881 [sym_kFile];
   ACTIONS 14883 [sym_kFunction]; ACTIONS 14879 [sym_kInterface]; ACTIONS 14869 [sym_kObject];
   ACTIONS 14885 [sym_kPacked]; ACTIONS 14883 [sym_kProcedure]; ACTIONS 14887 [sym_kRecord];
   ACTIONS 14889 [sym_kSet]; ACTIONS 14891 [sym_kString]; ACTIONS 14909 [sym_kType]].

(** State 2747. *)
Definition ts_parse_table_2747 : parse_row :=
  [STATE 15338 [sym_type]; STATE 12384 [sym__anonymousRecord; sym_declSubRange];
   STATE 11313 [sym__subRangeBound]; STATE 10620 [sym__subRangeCall];
   STATE 10605 [sym__subRangeUnary]; STATE 10614 [sym__subRangeBinary];
   STATE 12384 [sym_typeref]; STATE 10505 [sym__typeref; sym_typerefDot; sym_typerefTpl;
   sym_typerefPtr]; STATE 11313 [sym_literalString]; STATE 10482 [sym__literalString;
   sym_literalChar]; STATE 11313 [sym_literalNumber]; STATE 10647 [sym__literalInt;
   sym__literalFloat]; STATE 3870 [sym__ppIf]; STATE 12384 [sym_declEnum; sym_declSet;
   sym_declArray; sym_declFile; sym_declString; sym_declProcRef; sym_declMetaClass];
   STATE 15338 [sym_declClass; sym_declIntf; sym_declHelper];
   STATE 10482 [aux_sym_literalString_repeat1]; ACTIONS 14849 [anon_sym_LPAREN];
   ACTIONS 14851 [aux_sym__literalString_token1]; ACTIONS 14853 [anon_sym_POUND];
   ACTIONS 14855 [aux_sym__literalInt_token1]; ACTIONS 14857 [aux_sym__literalInt_token2;
   aux_sym__literalInt_token3]; ACTIONS 14855 [aux_sym__literalFloat_token1];
   ACTIONS 14859 [aux_sym_ppUsesBlock_token1]; ACTIONS 14861 [sym_kAdd; sym_kSub];
   ACTIONS 14863 [sym_kHat]; ACTIONS 3 [sym__space]; ACTIONS 5 [sym_ppDirective];
   ACTIONS 3 [sym_comment]; ACTIONS 14865 [sym_ppFragmentExpr];
   ACTIONS 14851 [sym__literalStringMultiline]; ACTIONS 14867 [sym_identifier];
   ACTIONS 14869 [sym_kObjcclass; sym_kObjccategory; sym_kObjcprotocol];
   ACTIONS 14871 [sym_kSpecialize]; ACTIONS 14873 [sym_kReference]; ACTIONS 14875 [sym_kArray];
   ACTIONS 14877 [sym_kClass]; ACTIONS 14879 [sym_kDispInterface]; ACTIONS 14881 [sym_kFile];
   ACTIONS 14883 [sym_kFunction]; ACTIONS 14879 [sym_kInterface]; ACTIONS 14869 [sym_kObject];
   ACTIONS 14885 [sym_kPacked]; ACTIONS 14883 [sym_kProcedure]; ACTIONS 14887 [sym_kRecord];
   ACTIONS 14889 [sym_kSet]; ACTIONS 14891 [sym_kString]; ACTIONS 14911 [sym_kType]].

(** State 2748. *)
Definition ts_parse_table_2748 : parse_row :=
  [STATE 15890 [sym_type]; STATE 12384 [sym__anonymousRecord; sym_declSubRange];
   STATE 11313 [sym__subRangeBound]; STATE 10620 [sym__subRangeCall];
   STATE 10605 [sym__subRangeUnary]; STATE 10614 [sym__subRangeBinary];
   STATE 12384 [sym_typeref]; STATE 10505 [sym__typeref; sym_typerefDot; sym_typerefTpl;
   sym_typerefPtr]; STATE 11313 [sym_literalString]; STATE 10482 [sym__literalString;
   sym_literalChar]; STATE 11313 [sym_literalNumber]; STATE 10647 [sym__literalInt;
   sym__literalFloat]; STATE 3870 [sym__ppIf]; STATE 12384 [sym_declEnum; sym_declSet;
   sym_declArray; sym_declFile; sym_declString; sym_declProcRef; sym_declMetaClass];
   STATE 15890 [sym_declClass; sym_declIntf; sym_declHelper];
   STATE 10482 [aux_sym_literalString_repeat1]; ACTIONS 14849 [anon_sym_LPAREN];
   ACTIONS 14851 [aux_sym__literalString_token1]; ACTIONS 14853 [anon_sym_POUND];
   ACTIONS 14855 [aux_sym__literalInt_token1]; ACTIONS 14857 [aux_sym__literalInt_token2;
   aux_sym__literalInt_token3]; ACTIONS 14855 [aux_sym__literalFloat_token1];
   ACTIONS 14859 [aux_sym_ppUsesBlock_token1]; ACTIONS 14861 [sym_kAdd; sym_kSub];
   ACTIONS 14863 [sym_kHat]; ACTIONS 3 [sym__space]; ACTIONS 5 [sym_ppDirective];
   ACTIONS 3 [sym_comment]; ACTIONS 14865 [sym_ppFragmentExpr];
   ACTIONS 14851 [sym__literalStringMultiline]; ACTIONS 14867 [sym_identifier];
   ACTIONS 14869 [sym_kObjcclass; sym_kObjccategory; sym_kObjcprotocol];
   ACTIONS 14871 [sym_kSpecialize]; ACTIONS 14873 [sym_kReference]; ACTIONS 14875 [sym_kArray];
   ACTIONS 14877 [sym_kClass]; ACTIONS 14879 [sym_kDispInterface]; ACTIONS 14881 [sym_kFile];
   ACTIONS 14883 [sym_kFunction]; ACTIONS 14879 [sym_kInterface]; ACTIONS 14869 [sym_kObject];
   ACTIONS 14885 [sym_kPacked]; ACTIONS 14883 [sym_kProcedure]; ACTIONS 14887 [sym_kRecord];
   ACTIONS 14889 [sym_kSet]; ACTIONS 14891 [sym_kString]; ACTIONS 14913 [sym_kType]].

(** State 2749. *)
Definition ts_parse_table_2749 : parse_row :=
  [STATE 15153 [sym_type]; STATE 12384 [sym__anonymousRecord; sym_declSubRange];
   STATE 11313 [sym__subRangeBound]; STATE 10620 [sym__subRangeCall];
   STATE 10605 [sym__subRangeUnary]; STATE 10614 [sym__subRangeBinary];
   STATE 12384 [sym_typeref]; STATE 10505 [sym__typeref; sym_typerefDot; sym_typerefTpl;
   sym_typerefPtr]; STATE 11313 [sym_literalString]; STATE 10482 [sym__literalString;
   sym_literalChar]; STATE 11313 [sym_literalNumber]; STATE 10647 [sym__literalInt;
   sym__literalFloat]; STATE 3870 [sym__ppIf]; STATE 12384 [sym_declEnum; sym_declSet;
   sym_declArray; sym_declFile; sym_declString; sym_declProcRef; sym_declMetaClass];
   STATE 15153 [sym_declClass; sym_declIntf; sym_declHelper];
   STATE 10482 [aux_sym_literalString_repeat1]; ACTIONS 14849 [anon_sym_LPAREN];
   ACTIONS 14851 [aux_sym__literalString_token1]; ACTIONS 14853 [anon_sym_POUND];
   ACTIONS 14855 [aux_sym__literalInt_token1]; ACTIONS 14857 [aux_sym__literalInt_token2;
   aux_sym__literalInt_token3]; ACTIONS 14855 [aux_sym__literalFloat_token1];
   ACTIONS 14859 [aux_sym_ppUsesBlock_token1]; ACTIONS 14861 [sym_kAdd; sym_kSub];
   ACTIONS 14863 [sym_kHat]; ACTIONS 3 [sym__space]; ACTIONS 5 [sym_ppDirective];
   ACTIONS 3 [sym_comment]; ACTIONS 14865 [sym_ppFragmentExpr];
   ACTIONS 14851 [sym__literalStringMultiline]; ACTIONS 14867 [sym_identifier];
   ACTIONS 14869 [sym_kObjcclass; sym_kObjccategory; sym_kObjcprotocol];
   ACTIONS 14871 [sym_kSpecialize]; ACTIONS 14873 [sym_kReference]; ACTIONS 14875 [sym_kArray];
   ACTIONS 14877 [sym_kClass]; ACTIONS 14879 [sym_kDispInterface]; ACTIONS 14881 [sym_kFile];
   ACTIONS 14883 [sym_kFunction]; ACTIONS 14879 [sym_kInterface]; ACTIONS 14869 [sym_kObject];
   ACTIONS 14885 [sym_kPacked]; ACTIONS 14883 [sym_kProcedure]; ACTIONS 14887 [sym_kRecord];
   ACTIONS 14889 [sym_kSet]; ACTIONS 14891 [sym_kString]; ACTIONS 14915 [sym_kType]].

(** State 2750. *)
Definition ts_parse_table_2750 : parse_row :=
  [STATE 15162 [sym_type]; STATE 12384 [sym__anonymousRecord; sym_declSubRange];
   STATE 11313 [sym__subRangeBound]; STATE 10620 [sym__subRangeCall];
   STATE 10605 [sym__subRangeUnary]; STATE 10614 [sym__subRangeBinary];
   STATE 12384 [sym_typeref]; STATE 10505 [sym__typeref; sym_typerefDot; sym_typerefTpl;
   sym_typerefPtr]; STATE 11313 [sym_literalString]; STATE 10482 [sym__literalString;
   sym_literalChar]; STATE 11313 [sym_literalNumber]; STATE 10647 [sym__literalInt;
   sym__literalFloat]; STATE 3870 [sym__ppIf]; STATE 12384 [sym_declEnum; sym_declSet;
   sym_declArray; sym_declFile; sym_declString; sym_declProcRef; sym_declMetaClass];
   STATE 15162 [sym_declClass; sym_declIntf; sym_declHelper];
   STATE 10482 [aux_sym_literalString_repeat1]; ACTIONS 14849 [anon_sym_LPAREN];
   ACTIONS 14851 [aux_sym__literalString_token1]; ACTIONS 14853 [anon_sym_POUND];
   ACTIONS 14855 [aux_sym__literalInt_token1]; ACTIONS 14857 [aux_sym__literalInt_token2;
   aux_sym__literalInt_token3]; ACTIONS 14855 [aux_sym__literalFloat_token1];
   ACTIONS 14859 [aux_sym_ppUsesBlock_token1]; ACTIONS 14861 [sym_kAdd; sym_kSub];
   ACTIONS 14863 [sym_kHat]; ACTIONS 3 [sym__space]; ACTIONS 5 [sym_ppDirective];
   ACTIONS 3 [sym_comment]; ACTIONS 14865 [sym_ppFragmentExpr];
   ACTIONS 14851 [sym__literalStringMultiline]; ACTIONS 14867 [sym_identifier];
   ACTIONS 14869 [sym_kObjcclass; sym_kObjccategory; sym_kObjcprotocol];
   ACTIONS 14871 [sym_kSpecialize]; ACTIONS 14873 [sym_kReference]; ACTIONS 14875 [sym_kArray];
   ACTIONS 14877 [sym_kClass]; ACTIONS 14879 [sym_kDispInterface]; ACTIONS 14881 [sym_kFile];
   ACTIONS 14883 [sym_kFunction]; ACTIONS 14879 [sym_kInterface]; ACTIONS 14869 [sym_kObject];
   ACTIONS 14885 [sym_kPacked]; ACTIONS 14883 [sym_kProcedure]; ACTIONS 14887 [sym_kRecord];
   ACTIONS 14889 [sym_kSet]; ACTIONS 14891 [sym_kString]; ACTIONS 14917 [sym_kType]].

(** State 2751. *)
Definition ts_parse_table_2751 : parse_row :=
  [STATE 15444 [sym_type]; STATE 12384 [sym__anonymousRecord; sym_declSubRange];
   STATE 11313 [sym__subRangeBound]; STATE 10620 [sym__subRangeCall];
   STATE 10605 [sym__subRangeUnary]; STATE 10614 [sym__subRangeBinary];
   STATE 12384 [sym_typeref]; STATE 10505 [sym__typeref; sym_typerefDot; sym_typerefTpl;
   sym_typerefPtr]; STATE 11313 [sym_literalString]; STATE 10482 [sym__literalString;
   sym_literalChar]; STATE 11313 [sym_literalNumber]; STATE 10647 [sym__literalInt;
   sym__literalFloat]; STATE 3870 [sym__ppIf]; STATE 12384 [sym_declEnum; sym_declSet;
   sym_declArray; sym_declFile; sym_declString; sym_declProcRef; sym_declMetaClass];
   STATE 15444 [sym_declClass; sym_declIntf; sym_declHelper];
   STATE 10482 [aux_sym_literalString_repeat1]; ACTIONS 14849 [anon_sym_LPAREN];
   ACTIONS 14851 [aux_sym__literalString_token1]; ACTIONS 14853 [anon_sym_POUND];
   ACTIONS 14855 [aux_sym__literalInt_token1]; ACTIONS 14857 [aux_sym__literalInt_token2;
   aux_sym__literalInt_token3]; ACTIONS 14855 [aux_sym__literalFloat_token1];
   ACTIONS 14859 [aux_sym_ppUsesBlock_token1]; ACTIONS 14861 [sym_kAdd; sym_kSub];
   ACTIONS 14863 [sym_kHat]; ACTIONS 3 [sym__space]; ACTIONS 5 [sym_ppDirective];
   ACTIONS 3 [sym_comment]; ACTIONS 14865 [sym_ppFragmentExpr];
   ACTIONS 14851 [sym__literalStringMultiline]; ACTIONS 14867 [sym_identifier];
   ACTIONS 14869 [sym_kObjcclass; sym_kObjccategory; sym_kObjcprotocol];
   ACTIONS 14871 [sym_kSpecialize]; ACTIONS 14873 [sym_kReference]; ACTIONS 14875 [sym_kArray];
   ACTIONS 14877 [sym_kClass]; ACTIONS 14879 [sym_kDispInterface]; ACTIONS 14881 [sym_kFile];
   ACTIONS 14883 [sym_kFunction]; ACTIONS 14879 [sym_kInterface]; ACTIONS 14869 [sym_kObject];
   ACTIONS 14885 [sym_kPacked]; ACTIONS 14883 [sym_kProcedure]; ACTIONS 14887 [sym_kRecord];
   ACTIONS 14889 [sym_kSet]; ACTIONS 14891 [sym_kString]; ACTIONS 14919 [sym_kType]].

(** State 2752. *)
Definition ts_parse_table_2752 : parse_row :=
  [STATE 15645 [sym_type]; STATE 12384 [sym__anonymousRecord; sym_declSubRange];
   STATE 11313 [sym__subRangeBound]; STATE 10620 [sym__subRangeCall];
   STATE 10605 [sym__subRangeUnary]; STATE 10614 [sym__subRangeBinary];
   STATE 12384 [sym_typeref]; STATE 10505 [sym__typeref; sym_typerefDot; sym_typerefTpl;
   sym_typerefPtr]; STATE 11313 [sym_literalString]; STATE 10482 [sym__literalString;
   sym_literalChar]; STATE 11313 [sym_literalNumber]; STATE 10647 [sym__literalInt;
   sym__literalFloat]; STATE 3870 [sym__ppIf]; STATE 12384 [sym_declEnum; sym_declSet;
   sym_declArray; sym_declFile; sym_declString; sym_declProcRef; sym_declMetaClass];
   STATE 15645 [sym_declClass; sym_declIntf; sym_declHelper];
   STATE 10482 [aux_sym_literalString_repeat1]; ACTIONS 14849 [anon_sym_LPAREN];
   ACTIONS 14851 [aux_sym__literalString_token1]; ACTIONS 14853 [anon_sym_POUND];
   ACTIONS 14855 [aux_sym__literalInt_token1]; ACTIONS 14857 [aux_sym__literalInt_token2;
   aux_sym__literalInt_token3]; ACTIONS 14855 [aux_sym__literalFloat_token1];
   ACTIONS 14859 [aux_sym_ppUsesBlock_token1]; ACTIONS 14861 [sym_kAdd; sym_kSub];
   ACTIONS 14863 [sym_kHat]; ACTIONS 3 [sym__space]; ACTIONS 5 [sym_ppDirective];
   ACTIONS 3 [sym_comment]; ACTIONS 14865 [sym_ppFragmentExpr];
   ACTIONS 14851 [sym__literalStringMultiline]; ACTIONS 14867 [sym_identifier];
   ACTIONS 14869 [sym_kObjcclass; sym_kObjccategory; sym_kObjcprotocol];
   ACTIONS 14871 [sym_kSpecialize]; ACTIONS 14873 [sym_kReference]; ACTIONS 14875 [sym_kArray];
   ACTIONS 14877 [sym_kClass]; ACTIONS 14879 [sym_kDispInterface]; ACTIONS 14881 [sym_kFile];
   ACTIONS 14883 [sym_kFunction]; ACTIONS 14879 [sym_kInterface]; ACTIONS 14869 [sym_kObject];
   ACTIONS 14885 [sym_kPacked]; ACTIONS 14883 [sym_kProcedure]; ACTIONS 14887 [sym_kRecord];
   ACTIONS 14889 [sym_kSet]; ACTIONS 14891 [sym_kString]; ACTIONS 14921 [sym_kType]].

(** State 2753. *)
Definition ts_parse_table_2753 : parse_row :=
  [STATE 14370 [sym_type]; STATE 12384 [sym__anonymousRecord; sym_declSubRange];
   STATE 11313 [sym__subRangeBound]; STATE 10620 [sym__subRangeCall];
   STATE 10605 [sym__subRangeUnary]; STATE 10614 [sym__subRangeBinary];
   STATE 12384 [sym_typeref]; STATE 10505 [sym__typeref; sym_typerefDot; sym_typerefTpl;
   sym_typerefPtr]; STATE 11313 [sym_literalString]; STATE 10482 [sym__literalString;
   sym_literalChar]; STATE 11313 [sym_literalNumber]; STATE 10647 [sym__literalInt;
   sym__literalFloat]; STATE 3870 [sym__ppIf]; STATE 12384 [sym_declEnum; sym_declSet;
   sym_declArray; sym_declFile; sym_declString; sym_declProcRef; sym_declMetaClass];
   STATE 14370 [sym_declClass; sym_declIntf; sym_declHelper];
   STATE 10482 [aux_sym_literalString_repeat1]; ACTIONS 14849 [anon_sym_LPAREN];
   ACTIONS 14851 [aux_sym__literalString_token1]; ACTIONS 14853 [anon_sym_POUND];
   ACTIONS 14855 [aux_sym__literalInt_token1]; ACTIONS 14857 [aux_sym__literalInt_token2;
   aux_sym__literalInt_token3]; ACTIONS 14855 [aux_sym__literalFloat_token1];
   ACTIONS 14859 [aux_sym_ppUsesBlock_token1]; ACTIONS 14861 [sym_kAdd; sym_kSub];
   ACTIONS 14863 [sym_kHat]; ACTIONS 3 [sym__space]; ACTIONS 5 [sym_ppDirective];
   ACTIONS 3 [sym_comment]; ACTIONS 14865 [sym_ppFragmentExpr];
   ACTIONS 14851 [sym__literalStringMultiline]; ACTIONS 14867 [sym_identifier];
   ACTIONS 14869 [sym_kObjcclass; sym_kObjccategory; sym_kObjcprotocol];
   ACTIONS 14871 [sym_kSpecialize]; ACTIONS 14873 [sym_kReference]; ACTIONS 14875 [sym_kArray];
   ACTIONS 14877 [sym_kClass]; ACTIONS 14879 [sym_kDispInterface]; ACTIONS 14881 [sym_kFile];
   ACTIONS 14883 [sym_kFunction]; ACTIONS 14879 [sym_kInterface]; ACTIONS 14869 [sym_kObject];
   ACTIONS 14885 [sym_kPacked]; ACTIONS 14883 [sym_kProcedure]; ACTIONS 14887 [sym_kRecord];
   ACTIONS 14889 [sym_kSet]; ACTIONS 14891 [sym_kString]; ACTIONS 14923 [sym_kType]].

(** State 2754. *)
Definition ts_parse_table_2754 : parse_row :=
  [STATE 15807 [sym_type]; STATE 12384 [sym__anonymousRecord; sym_declSubRange];
   STATE 11313 [sym__subRangeBound]; STATE 10620 [sym__subRangeCall];
   STATE 10605 [sym__subRangeUnary]; STATE 10614 [sym__subRangeBinary];
   STATE 12384 [sym_typeref]; STATE 10505 [sym__typeref; sym_typerefDot; sym_typerefTpl;
   sym_typerefPtr]; STATE 11313 [sym_literalString]; STATE 10482 [sym__literalString;
   sym_literalChar]; STATE 11313 [sym_literalNumber]; STATE 10647 [sym__literalInt;
   sym__literalFloat]; STATE 3870 [sym__ppIf]; STATE 12384 [sym_declEnum; sym_declSet;
   sym_declArray; sym_declFile; sym_declString; sym_declProcRef; sym_declMetaClass];
   STATE 15807 [sym_declClass; sym_declIntf; sym_declHelper];
   STATE 10482 [aux_sym_literalString_repeat1]; ACTIONS 14849 [anon_sym_LPAREN];
   ACTIONS 14851 [aux_sym__literalString_token1]; ACTIONS 14853 [anon_sym_POUND];
   ACTIONS 14855 [aux_sym__literalInt_token1]; ACTIONS 14857 [aux_sym__literalInt_token2;
   aux_sym__literalInt_token3]; ACTIONS 14855 [aux_sym__literalFloat_token1];
   ACTIONS 14859 [aux_sym_ppUsesBlock_token1]; ACTIONS 14861 [sym_kAdd; sym_kSub];
   ACTIONS 14863 [sym_kHat]; ACTIONS 3 [sym__space]; ACTIONS 5 [sym_ppDirective];
   ACTIONS 3 [sym_comment]; ACTIONS 14865 [sym_ppFragmentExpr];
   ACTIONS 14851 [sym__literalStringMultiline]; ACTIONS 14867 [sym_identifier];
   ACTIONS 14869 [sym_kObjcclass; sym_kObjccategory; sym_kObjcprotocol];
   ACTIONS 14871 [sym_kSpecialize]; ACTIONS 14873 [sym_kReference]; ACTIONS 14875 [sym_kArray];
   ACTIONS 14877 [sym_kClass]; ACTIONS 14879 [sym_kDispInterface]; ACTIONS 14881 [sym_kFile];
   ACTIONS 14883 [sym_kFunction]; ACTIONS 14879 [sym_kInterface]; ACTIONS 14869 [sym_kObject];
   ACTIONS 14885 [sym_kPacked]; ACTIONS 14883 [sym_kProcedure]; ACTIONS 14887 [sym_kRecord];
   ACTIONS 14889 [sym_kSet]; ACTIONS 14891 [sym_kString]; ACTIONS 14925 [sym_kType]].

(** State 2755. *)
Definition ts_parse_table_2755 : parse_row :=
  [STATE 15937 [sym_type]; STATE 12384 [sym__anonymousRecord; sym_declSubRange];
   STATE 11313 [sym__subRangeBound]; STATE 10620 [sym__subRangeCall];
   STATE 10605 [sym__subRangeUnary]; STATE 10614 [sym__subRangeBinary];
   STATE 12384 [sym_typeref]; STATE 10505 [sym__typeref; sym_typerefDot; sym_typerefTpl;
   sym_typerefPtr]; STATE 11313 [sym_literalString]; STATE 10482 [sym__literalString;
   sym_literalChar]; STATE 11313 [sym_literalNumber]; STATE 10647 [sym__literalInt;
   sym__literalFloat]; STATE 3870 [sym__ppIf]; STATE 12384 [sym_declEnum; sym_declSet;
   sym_declArray; sym_declFile; sym_declString; sym_declProcRef; sym_declMetaClass];
   STATE 15937 [sym_declClass; sym_declIntf; sym_declHelper];
   STATE 10482 [aux_sym_literalString_repeat1]; ACTIONS 14849 [anon_sym_LPAREN];
   ACTIONS 14851 [aux_sym__literalString_token1]; ACTIONS 14853 [anon_sym_POUND];
   ACTIONS 14855 [aux_sym__literalInt_token1]; ACTIONS 14857 [aux_sym__literalInt_token2;
   aux_sym__literalInt_token3]; ACTIONS 14855 [aux_sym__literalFloat_token1];
   ACTIONS 14859 [aux_sym_ppUsesBlock_token1]; ACTIONS 14861 [sym_kAdd; sym_kSub];
   ACTIONS 14863 [sym_kHat]; ACTIONS 3 [sym__space]; ACTIONS 5 [sym_ppDirective];
   ACTIONS 3 [sym_comment]; ACTIONS 14865 [sym_ppFragmentExpr];
   ACTIONS 14851 [sym__literalStringMultiline]; ACTIONS 14867 [sym_identifier];
   ACTIONS 14869 [sym_kObjcclass; sym_kObjccategory; sym_kObjcprotocol];
   ACTIONS 14871 [sym_kSpecialize]; ACTIONS 14873 [sym_kReference]; ACTIONS 14875 [sym_kArray];
   ACTIONS 14877 [sym_kClass]; ACTIONS 14879 [sym_kDispInterface]; ACTIONS 14881 [sym_kFile];
   ACTIONS 14883 [sym_kFunction]; ACTIONS 14879 [sym_kInterface]; ACTIONS 14869 [sym_kObject];
   ACTIONS 14885 [sym_kPacked]; ACTIONS 14883 [sym_kProcedure]; ACTIONS 14887 [sym_kRecord];
   ACTIONS 14889 [sym_kSet]; ACTIONS 14891 [sym_kString]; ACTIONS 14927 [sym_kType]].

(** State 2756. *)
Definition ts_parse_table_2756 : parse_row :=
  [STATE 15476 [sym_type]; STATE 12384 [sym__anonymousRecord; sym_declSubRange];
   STATE 11313 [sym__subRangeBound]; STATE 10620 [sym__subRangeCall];
   STATE 10605 [sym__subRangeUnary]; STATE 10614 [sym__subRangeBinary];
   STATE 12384 [sym_typeref]; STATE 10505 [sym__typeref; sym_typerefDot; sym_typerefTpl;
   sym_typerefPtr]; STATE 11313 [sym_literalString]; STATE 10482 [sym__literalString;
   sym_literalChar]; STATE 11313 [sym_literalNumber]; STATE 10647 [sym__literalInt;
   sym__literalFloat]; STATE 3870 [sym__ppIf]; STATE 12384 [sym_declEnum; sym_declSet;
   sym_declArray; sym_declFile; sym_declString; sym_declProcRef; sym_declMetaClass];
   STATE 15476 [sym_declClass; sym_declIntf; sym_declHelper];
   STATE 10482 [aux_sym_literalString_repeat1]; ACTIONS 14849 [anon_sym_LPAREN];
   ACTIONS 14851 [aux_sym__literalString_token1]; ACTIONS 14853 [anon_sym_POUND];
   ACTIONS 14855 [aux_sym__literalInt_token1]; ACTIONS 14857 [aux_sym__literalInt_token2;
   aux_sym__literalInt_token3]; ACTIONS 14855 [aux_sym__literalFloat_token1];
   ACTIONS 14859 [aux_sym_ppUsesBlock_token1]; ACTIONS 14861 [sym_kAdd; sym_kSub];
   ACTIONS 14863 [sym_kHat]; ACTIONS 3 [sym__space]; ACTIONS 5 [sym_ppDirective];
   ACTIONS 3 [sym_comment]; ACTIONS 14865 [sym_ppFragmentExpr];
   ACTIONS 14851 [sym__literalStringMultiline]; ACTIONS 14867 [sym_identifier];
   ACTIONS 14869 [sym_kObjcclass; sym_kObjccategory; sym_kObjcprotocol];
   ACTIONS 14871 [sym_kSpecialize]; ACTIONS 14873 [sym_kReference]; ACTIONS 14875 [sym_kArray];
   ACTIONS 14877 [sym_kClass]; ACTIONS 14879 [sym_kDispInterface]; ACTIONS 14881 [sym_kFile];
   ACTIONS 14883 [sym_kFunction]; ACTIONS 14879 [sym_kInterface]; ACTIONS 14869 [sym_kObject];
   ACTIONS 14885 [sym_kPacked]; ACTIONS 14883 [sym_kProcedure]; ACTIONS 14887 [sym_kRecord];
   ACTIONS 14889 [sym_kSet]; ACTIONS 14891 [sym_kString]; ACTIONS 14929 [sym_kType]].

(** State 2757. *)
Definition ts_parse_table_2757 : parse_row :=
  [STATE 14514 [sym_type]; STATE 12384 [sym__anonymousRecord; sym_declSubRange];
   STATE 11313 [sym__subRangeBound]; STATE 10620 [sym__subRangeCall];
   STATE 10605 [sym__subRangeUnary]; STATE 10614 [sym__subRangeBinary];
   STATE 12384 [sym_typeref]; STATE 10505 [sym__typeref; sym_typerefDot; sym_typerefTpl;
   sym_typerefPtr]; STATE 11313 [sym_literalString]; STATE 10482 [sym__literalString;
   sym_literalChar]; STATE 11313 [sym_literalNumber]; STATE 10647 [sym__literalInt;
   sym__literalFloat]; STATE 3870 [sym__ppIf]; STATE 12384 [sym_declEnum; sym_declSet;
   sym_declArray; sym_declFile; sym_declString; sym_declProcRef; sym_declMetaClass];
   STATE 14514 [sym_declClass; sym_declIntf; sym_declHelper];
   STATE 10482 [aux_sym_literalString_repeat1]; ACTIONS 14849 [anon_sym_LPAREN];
   ACTIONS 14851 [aux_sym__literalString_token1]; ACTIONS 14853 [anon_sym_POUND];
   ACTIONS 14855 [aux_sym__literalInt_token1]; ACTIONS 14857 [aux_sym__literalInt_token2;
   aux_sym__literalInt_token3]; ACTIONS 14855 [aux_sym__literalFloat_token1];
   ACTIONS 14859 [aux_sym_ppUsesBlock_token1]; ACTIONS 14861 [sym_kAdd; sym_kSub];
   ACTIONS 14863 [sym_kHat]; ACTIONS 3 [sym__space]; ACTIONS 5 [sym_ppDirective];
   ACTIONS 3 [sym_comment]; ACTIONS 14865 [sym_ppFragmentExpr];
   ACTIONS 14851 [sym__literalStringMultiline]; ACTIONS 14867 [sym_identifier];
   ACTIONS 14869 [sym_kObjcclass; sym_kObjccategory; sym_kObjcprotocol];
   ACTIONS 14871 [sym_kSpecialize]; ACTIONS 14873 [sym_kReference]; ACTIONS 14875 [sym_kArray];
   ACTIONS 14877 [sym_kClass]; ACTIONS 14879 [sym_kDispInterface]; ACTIONS 14881 [sym_kFile];
   ACTIONS 14883 [sym_kFunction]; ACTIONS 14879 [sym_kInterface]; ACTIONS 14869 [sym_kObject];
   ACTIONS 14885 [sym_kPacked]; ACTIONS 14883 [sym_kProcedure]; ACTIONS 14887 [sym_kRecord];
   ACTIONS 14889 [sym_kSet]; ACTIONS 14891 [sym_kString]; ACTIONS 14931 [sym_kType]].

(** State 2758. *)
Definition ts_parse_table_2758 : parse_row :=
  [STATE 14618 [sym_type]; STATE 12384 [sym__anonymousRecord; sym_declSubRange];
   STATE 11313 [sym__subRangeBound]; STATE 10620 [sym__subRangeCall];
   STATE 10605 [sym__subRangeUnary]; STATE 10614 [sym__subRangeBinary];
   STATE 12384 [sym_typeref]; STATE 10505 [sym__typeref; sym_typerefDot; sym_typerefTpl;
   sym_typerefPtr]; STATE 11313 [sym_literalString]; STATE 10482 [sym__literalString;
   sym_literalChar]; STATE 11313 [sym_literalNumber]; STATE 10647 [sym__literalInt;
   sym__literalFloat]; STATE 3870 [sym__ppIf]; STATE 12384 [sym_declEnum; sym_declSet;
   sym_declArray; sym_declFile; sym_declString; sym_declProcRef; sym_declMetaClass];
   STATE 14618 [sym_declClass; sym_declIntf; sym_declHelper];
   STATE 10482 [aux_sym_literalString_repeat1]; ACTIONS 14849 [anon_sym_LPAREN];
   ACTIONS 14851 [aux_sym__literalString_token1]; ACTIONS 14853 [anon_sym_POUND];
   ACTIONS 14855 [aux_sym__literalInt_token1]; ACTIONS 14857 [aux_sym__literalInt_token2;
   aux_sym__literalInt_token3]; ACTIONS 14855 [aux_sym__literalFloat_token1];
   ACTIONS 14859 [aux_sym_ppUsesBlock_token1]; ACTIONS 14861 [sym_kAdd; sym_kSub];
   ACTIONS 14863 [sym_kHat]; ACTIONS 3 [sym__space]; ACTIONS 5 [sym_ppDirective];
   ACTIONS 3 [sym_comment]; ACTIONS 14865 [sym_ppFragmentExpr];
   ACTIONS 14851 [sym__literalStringMultiline]; ACTIONS 14867 [sym_identifier];
   ACTIONS 14869 [sym_kObjcclass; sym_kObjccategory; sym_kObjcprotocol];
   ACTIONS 14871 [sym_kSpecialize]; ACTIONS 14873 [sym_kReference]; ACTIONS 14875 [sym_kArray];
   ACTIONS 14877 [sym_kClass]; ACTIONS 14879 [sym_kDispInterface]; ACTIONS 14881 [sym_kFile];
   ACTIONS 14883 [sym_kFunction]; ACTIONS 14879 [sym_kInterface]; ACTIONS 14869 [sym_kObject];
   ACTIONS 14885 [sym_kPacked]; ACTIONS 14883 [sym_kProcedure]; ACTIONS 14887 [sym_kRecord];
   ACTIONS 14889 [sym_kSet]; ACTIONS 14891 [sym_kString]; ACTIONS 14933 [sym_kType]].

Definition ts_parse_table_part12 : list parse_row :=
  [
   ts_parse_table_2467; ts_parse_table_2468; ts_parse_table_2469; ts_parse_table_2470;
   ts_parse_table_2471; ts_parse_table_2472; ts_parse_table_2473; ts_parse_table_2474;
   ts_parse_table_2475; ts_parse_table_2476; ts_parse_table_2477; ts_parse_table_2478;
   ts_parse_table_2479; ts_parse_table_2480; ts_parse_table_2481; ts_parse_table_2482;
   ts_parse_table_2483; ts_parse_table_2484; ts_parse_table_2485; ts_parse_table_2486;
   ts_parse_table_2487; ts_parse_table_2488; ts_parse_table_2489; ts_parse_table_2490;
   ts_parse_table_2491; ts_parse_table_2492; ts_parse_table_2493; ts_parse_table_2494;
   ts_parse_table_2495; ts_parse_table_2496; ts_parse_table_2497; ts_parse_table_2498;
   ts_parse_table_2499; ts_parse_table_2500; ts_parse_table_2501; ts_parse_table_2502;
   ts_parse_table_2503; ts_parse_table_2504; ts_parse_table_2505; ts_parse_table_2506;
   ts_parse_table_2507; ts_parse_table_2508; ts_parse_table_2509; ts_parse_table_2510;
   ts_parse_table_2511; ts_parse_table_2512; ts_parse_table_2513; ts_parse_table_2514;
   ts_parse_table_2515; ts_parse_table_2516; ts_parse_table_2517; ts_parse_table_2518;
   ts_parse_table_2519; ts_parse_table_2520; ts_parse_table_2521; ts_parse_table_2522;
   ts_parse_table_2523; ts_parse_table_2524; ts_parse_table_2525; ts_parse_table_2526;
   ts_parse_table_2527; ts_parse_table_2528; ts_parse_table_2529; ts_parse_table_2530;
   ts_parse_table_2531; ts_parse_table_2532; ts_parse_table_2533; ts_parse_table_2534;
   ts_parse_table_2535; ts_parse_table_2536; ts_parse_table_2537; ts_parse_table_2538;
   ts_parse_table_2539; ts_parse_table_2540; ts_parse_table_2541; ts_parse_table_2542;
   ts_parse_table_2543; ts_parse_table_2544; ts_parse_table_2545; ts_parse_table_2546;
   ts_parse_table_2547; ts_parse_table_2548; ts_parse_table_2549; ts_parse_table_2550;
   ts_parse_table_2551; ts_parse_table_2552; ts_parse_table_2553; ts_parse_table_2554;
   ts_parse_table_2555; ts_parse_table_2556; ts_parse_table_2557; ts_parse_table_2558;
   ts_parse_table_2559; ts_parse_table_2560; ts_parse_table_2561; ts_parse_table_2562;
   ts_parse_table_2563; ts_parse_table_2564; ts_parse_table_2565; ts_parse_table_2566;
   ts_parse_table_2567; ts_parse_table_2568; ts_parse_table_2569; ts_parse_table_2570;
   ts_parse_table_2571; ts_parse_table_2572; ts_parse_table_2573; ts_parse_table_2574;
   ts_parse_table_2575; ts_parse_table_2576; ts_parse_table_2577; ts_parse_table_2578;
   ts_parse_table_2579; ts_parse_table_2580; ts_parse_table_2581; ts_parse_table_2582;
   ts_parse_table_2583; ts_parse_table_2584; ts_parse_table_2585; ts_parse_table_2586;
   ts_parse_table_2587; ts_parse_table_2588; ts_parse_table_2589; ts_parse_table_2590;
   ts_parse_table_2591; ts_parse_table_2592; ts_parse_table_2593; ts_parse_table_2594;
   ts_parse_table_2595; ts_parse_table_2596; ts_parse_table_2597; ts_parse_table_2598;
   ts_parse_table_2599; ts_parse_table_2600; ts_parse_table_2601; ts_parse_table_2602;
   ts_parse_table_2603; ts_parse_table_2604; ts_parse_table_2605; ts_parse_table_2606;
   ts_parse_table_2607; ts_parse_table_2608; ts_parse_table_2609; ts_parse_table_2610;
   ts_parse_table_2611; ts_parse_table_2612; ts_parse_table_2613; ts_parse_table_2614;
   ts_parse_table_2615; ts_parse_table_2616; ts_parse_table_2617; ts_parse_table_2618;
   ts_parse_table_2619; ts_parse_table_2620; ts_parse_table_2621; ts_parse_table_2622;
   ts_parse_table_2623; ts_parse_table_2624; ts_parse_table_2625; ts_parse_table_2626;
   ts_parse_table_2627; ts_parse_table_2628; ts_parse_table_2629; ts_parse_table_2630;
   ts_parse_table_2631; ts_parse_table_2632; ts_parse_table_2633; ts_parse_table_2634;
   ts_parse_table_2635; ts_parse_table_2636; ts_parse_table_2637; ts_parse_table_2638;
   ts_parse_table_2639; ts_parse_table_2640; ts_parse_table_2641; ts_parse_table_2642;
   ts_parse_table_2643; ts_parse_table_2644; ts_parse_table_2645; ts_parse_table_2646;
   ts_parse_table_2647; ts_parse_table_2648; ts_parse_table_2649; ts_parse_table_2650;
   ts_parse_table_2651; ts_parse_table_2652; ts_parse_table_2653; ts_parse_table_2654;
   ts_parse_table_2655; ts_parse_table_2656; ts_parse_table_2657; ts_parse_table_2658;
   ts_parse_table_2659; ts_parse_table_2660; ts_parse_table_2661; ts_parse_table_2662;
   ts_parse_table_2663; ts_parse_table_2664; ts_parse_table_2665; ts_parse_table_2666;
   ts_parse_table_2667; ts_parse_table_2668; ts_parse_table_2669; ts_parse_table_2670;
   ts_parse_table_2671; ts_parse_table_2672; ts_parse_table_2673; ts_parse_table_2674;
   ts_parse_table_2675; ts_parse_table_2676; ts_parse_table_2677; ts_parse_table_2678;
   ts_parse_table_2679; ts_parse_table_2680; ts_parse_table_2681; ts_parse_table_2682;
   ts_parse_table_2683; ts_parse_table_2684; ts_parse_table_2685; ts_parse_table_2686;
   ts_parse_table_2687; ts_parse_table_2688; ts_parse_table_2689; ts_parse_table_2690;
   ts_parse_table_2691; ts_parse_table_2692; ts_parse_table_2693; ts_parse_table_2694;
   ts_parse_table_2695; ts_parse_table_2696; ts_parse_table_2697; ts_parse_table_2698;
   ts_parse_table_2699; ts_parse_table_2700; ts_parse_table_2701; ts_parse_table_2702;
   ts_parse_table_2703; ts_parse_table_2704; ts_parse_table_2705; ts_parse_table_2706;
   ts_parse_table_2707; ts_parse_table_2708; ts_parse_table_2709; ts_parse_table_2710;
   ts_parse_table_2711; ts_parse_table_2712; ts_parse_table_2713; ts_parse_table_2714;
   ts_parse_table_2715; ts_parse_table_2716; ts_parse_table_2717; ts_parse_table_2718;
   ts_parse_table_2719; ts_parse_table_2720; ts_parse_table_2721; ts_parse_table_2722;
   ts_parse_table_2723; ts_parse_table_2724; ts_parse_table_2725; ts_parse_table_2726;
   ts_parse_table_2727; ts_parse_table_2728; ts_parse_table_2729; ts_parse_table_2730;
   ts_parse_table_2731; ts_parse_table_2732; ts_parse_table_2733; ts_parse_table_2734;
   ts_parse_table_2735; ts_parse_table_2736; ts_parse_table_2737; ts_parse_table_2738;
   ts_parse_table_2739; ts_parse_table_2740; ts_parse_table_2741; ts_parse_table_2742;
   ts_parse_table_2743; ts_parse_table_2744; ts_parse_table_2745; ts_parse_table_2746;
   ts_parse_table_2747; ts_parse_table_2748; ts_parse_table_2749; ts_parse_table_2750;
   ts_parse_table_2751; ts_parse_table_2752; ts_parse_table_2753; ts_parse_table_2754;
   ts_parse_table_2755; ts_parse_table_2756; ts_parse_table_2757; ts_parse_table_2758
  ].
