(* ===== verification/ParseTable.v ===== *)
(** * The parse table of [parser.c]

    [ts_parse_table] has a row for each of the large parse states; the rows are
    in the files of the parts. *)

From S2P Require Import Prelude.
From S2P Require Import ParseTypes.
From S2P Require Import ParseTable1.
From S2P Require Import ParseTable2.
From S2P Require Import ParseTable3.
From S2P Require Import ParseTable4.
From S2P Require Import ParseTable5.
From S2P Require Import ParseTable6.
From S2P Require Import ParseTable7.
From S2P Require Import ParseTable8.
From S2P Require Import ParseTable9.
From S2P Require Import ParseTable10.
From S2P Require Import ParseTable11.
From S2P Require Import ParseTable12.

Definition ts_parse_table : list parse_row :=
  ts_parse_table_part1
  ++ ts_parse_table_part2
  ++ ts_parse_table_part3
  ++ ts_parse_table_part4
  ++ ts_parse_table_part5
  ++ ts_parse_table_part6
  ++ ts_parse_table_part7
  ++ ts_parse_table_part8
  ++ ts_parse_table_part9
  ++ ts_parse_table_part10
  ++ ts_parse_table_part11
  ++ ts_parse_table_part12.
