(* ===== verification/SmallSymbols.v ===== *)
(** * Symbol lists of the compressed parse table

    The groups of [ts_small_parse_table] in [parser.c] list the same symbols
    again and again; each list of more than one symbol is named here, in the
    order of its first use. *)

From S2P Require Import Prelude.
From S2P Require Import Symbols.

Definition syms_1 : list ts_symbol :=
  [sym__space; sym_ppDirective; sym_comment].

Definition syms_2 : list ts_symbol :=
  [sym_genericDot; sym_genericTpl; sym__genericName].

Definition syms_3 : list ts_symbol :=
  [sym_kConstructor; sym_kDestructor; sym_kFunction; sym_kProcedure].

Definition syms_4 : list ts_symbol :=
  [sym_kDefault; sym_kNodefault; sym_kDispId; sym_kPublic; sym_kStatic; sym_kVirtual;
   sym_kAbstract; sym_kDynamic; sym_kOverride; sym_kOverload; sym_kReintroduce; sym_kStdcall;
   sym_kCdecl; sym_kCppdecl; sym_kPascal; sym_kRegister; sym_kMwpascal; sym_kMessage;
   sym_kDeprecated; sym_kExperimental; sym_kPlatform; sym_kUnimplemented; sym_kCvar; sym_kExport;
   sym_kFar; sym_kNear; sym_kSafecall; sym_kAssembler; sym_kNostackframe; sym_kInterrupt;
   sym_kNoreturn; sym_kIocheck; sym_kLocal; sym_kHardfloat; sym_kSoftfloat; sym_kMs_abi_default;
   sym_kMs_abi_cdecl; sym_kSaveregisters; sym_kSysv_abi_default; sym_kSysv_abi_cdecl;
   sym_kVectorcall; sym_kVarargs; sym_kWinapi; sym_kAlias].

Definition syms_5 : list ts_symbol :=
  [sym__space; sym_comment].

Definition syms_6 : list ts_symbol :=
  [sym__literalStringMultiline; aux_sym__literalString_token1].

Definition syms_7 : list ts_symbol :=
  [aux_sym__literalInt_token1; aux_sym__literalFloat_token1].

Definition syms_8 : list ts_symbol :=
  [aux_sym__literalInt_token2; aux_sym__literalInt_token3].

Definition syms_9 : list ts_symbol :=
  [sym_kAdd; sym_kSub].

Definition syms_10 : list ts_symbol :=
  [sym_kNot; sym_kAt].

Definition syms_11 : list ts_symbol :=
  [sym_kFunction; sym_kProcedure].

Definition syms_12 : list ts_symbol :=
  [sym__literalInt; sym__literalFloat].

Definition syms_13 : list ts_symbol :=
  [sym__literalString; sym_literalChar; aux_sym_literalString_repeat1].

Definition syms_14 : list ts_symbol :=
  [sym__expr; sym_exprConditional; sym_exprBinary; sym_exprUnary].

Definition syms_15 : list ts_symbol :=
  [sym_ppFragmentExpr; sym_identifier; sym_kNil; sym_kTrue; sym_kFalse].

Definition syms_16 : list ts_symbol :=
  [sym_kElse; sym_kEnd; sym_kFinalization; sym_kImplementation; sym_kInitialization;
   sym_kInterface; anon_sym_SEMI; sym_kAssign; sym_kAssignAdd; sym_kAssignSub; sym_kAssignMul;
   sym_kAssignDiv].

Definition syms_17 : list ts_symbol :=
  [sym__ref; sym_lambda; sym_inherited; sym_exprDot; sym_exprDeref; sym_exprAs; sym_exprTpl;
   sym_exprSubscript; sym_exprCall; sym_exprParens; sym_exprBrackets; sym__literal;
   sym_literalString; sym_literalNumber].

Definition syms_18 : list ts_symbol :=
  [sym_kEnd; sym_kFinalization; sym_kImplementation; sym_kInitialization; sym_kInterface;
   anon_sym_SEMI; sym_kAssign; sym_kAssignAdd; sym_kAssignSub; sym_kAssignMul; sym_kAssignDiv].

Definition syms_19 : list ts_symbol :=
  [sym_kRead; sym_kWrite; sym_kImplements; sym_kDefault; sym_kNodefault; sym_kStored; sym_kIndex;
   sym_kDispId; sym_kOf; anon_sym_SEMI].

Definition syms_20 : list ts_symbol :=
  [sym_kRead; sym_kWrite; sym_kImplements; sym_kDefault; sym_kNodefault; sym_kStored; sym_kIndex;
   sym_kDispId; anon_sym_SEMI].

Definition syms_21 : list ts_symbol :=
  [sym_kOtherwise; sym_kElse].

Definition syms_22 : list ts_symbol :=
  [sym_caseCase; aux_sym_case_repeat1].

Definition syms_23 : list ts_symbol :=
  [sym_kOtherwise; sym_kElse; sym_kEnd; anon_sym_SEMI; sym_kAssign; sym_kAssignAdd;
   sym_kAssignSub; sym_kAssignMul; sym_kAssignDiv].

Definition syms_24 : list ts_symbol :=
  [sym_kElse; sym_kExcept; sym_kFinally; anon_sym_SEMI; sym_kAssign; sym_kAssignAdd;
   sym_kAssignSub; sym_kAssignMul; sym_kAssignDiv].

Definition syms_25 : list ts_symbol :=
  [anon_sym_LPAREN; sym_kLt; sym_kGt; sym_kFdiv].

Definition syms_26 : list ts_symbol :=
  [sym_identifier; sym_kGeneric; sym_kOperator; sym_kPublished; sym_kPublic; sym_kProtected;
   sym_kPrivate; sym_kStrict; sym_kRequired; sym_kOptional; sym_kAnd; sym_kAs; sym_kCase;
   sym_kClass; sym_kConst; sym_kConstructor; sym_kDestructor; sym_kDiv; sym_kEnd; sym_kFunction;
   sym_kIn; sym_kIs; sym_kMod; sym_kNot; sym_kOr; sym_kProcedure; sym_kProperty;
   sym_kResourcestring; sym_kShl; sym_kShr; sym_kThreadvar; sym_kType; sym_kVar; sym_kXor;
   anon_sym_SEMI; anon_sym_LBRACK; aux_sym_ppUsesBlock_token1; anon_sym_DOT; sym_kEq; sym_kNeq;
   sym_kLte; sym_kGte; sym_kAdd; sym_kSub; sym_kMul; sym_kHat].

Definition syms_27 : list ts_symbol :=
  [sym_identifier; sym_kGeneric; sym_kOperator; sym_kPublished; sym_kPublic; sym_kProtected;
   sym_kPrivate; sym_kStrict; sym_kRequired; sym_kOptional; sym_kAnd; sym_kAs; sym_kAsm;
   sym_kBegin; sym_kCase; sym_kClass; sym_kConst; sym_kConstructor; sym_kDestructor; sym_kDiv;
   sym_kEnd; sym_kExports; sym_kFunction; sym_kIn; sym_kIs; sym_kLabel; sym_kMod; sym_kNot;
   sym_kOr; sym_kProcedure; sym_kProperty; sym_kResourcestring; sym_kShl; sym_kShr;
   sym_kThreadvar; sym_kType; sym_kUses; sym_kVar; sym_kXor; anon_sym_SEMI; anon_sym_LBRACK;
   aux_sym_ppUsesBlock_token1; anon_sym_DOT; sym_kEq; sym_kNeq; sym_kLte; sym_kGte; sym_kAdd;
   sym_kSub; sym_kMul; sym_kHat].

Definition syms_28 : list ts_symbol :=
  [sym_kExcept; sym_kFinally; anon_sym_SEMI; sym_kAssign; sym_kAssignAdd; sym_kAssignSub;
   sym_kAssignMul; sym_kAssignDiv].

Definition syms_29 : list ts_symbol :=
  [sym_type; sym_arrayOfConstType].

Definition syms_30 : list ts_symbol :=
  [sym__subRangeBound; sym_literalString; sym_literalNumber].

Definition syms_31 : list ts_symbol :=
  [sym__typeref; sym_typerefDot; sym_typerefTpl; sym_typerefPtr].

Definition syms_32 : list ts_symbol :=
  [sym__anonymousRecord; sym_declSubRange; sym_typeref; sym_declEnum; sym_declSet; sym_declArray;
   sym_declFile; sym_declString; sym_declProcRef; sym_declMetaClass].

Definition syms_33 : list ts_symbol :=
  [sym_kDefault; sym_kNodefault; sym_kStatic; sym_kVirtual; sym_kAbstract; sym_kDynamic;
   sym_kOverride; sym_kOverload; sym_kReintroduce; sym_kStdcall; sym_kCdecl; sym_kCppdecl;
   sym_kPascal; sym_kRegister; sym_kMwpascal; sym_kExperimental; sym_kPlatform;
   sym_kUnimplemented; sym_kCvar; sym_kFar; sym_kNear; sym_kSafecall; sym_kAssembler;
   sym_kNostackframe; sym_kInterrupt; sym_kNoreturn; sym_kIocheck; sym_kLocal; sym_kHardfloat;
   sym_kSoftfloat; sym_kMs_abi_default; sym_kMs_abi_cdecl; sym_kSaveregisters;
   sym_kSysv_abi_default; sym_kSysv_abi_cdecl; sym_kVectorcall; sym_kVarargs; sym_kWinapi;
   sym_kInline].

Definition syms_34 : list ts_symbol :=
  [anon_sym_LPAREN; sym_kLt; sym_kGt; sym_kAdd; sym_kSub; sym_kMul; sym_kFdiv].

Definition syms_35 : list ts_symbol :=
  [sym_kGeneric; sym_kOperator; sym_kAnd; sym_kAs; sym_kAsm; sym_kBegin; sym_kClass; sym_kConst;
   sym_kConstructor; sym_kDestructor; sym_kDiv; sym_kElse; sym_kEnd; sym_kExports;
   sym_kFinalization; sym_kFunction; sym_kImplementation; sym_kIn; sym_kInitialization;
   sym_kInterface; sym_kIs; sym_kLabel; sym_kMod; sym_kNot; sym_kOr; sym_kProcedure;
   sym_kResourcestring; sym_kShl; sym_kShr; sym_kThreadvar; sym_kType; sym_kUses; sym_kVar;
   sym_kXor; anon_sym_SEMI; anon_sym_LBRACK; aux_sym_ppUsesBlock_token1; anon_sym_DOT; sym_kEq;
   sym_kNeq; sym_kLte; sym_kGte; sym_kHat; sym_kAssign; sym_kAssignAdd; sym_kAssignSub;
   sym_kAssignMul; sym_kAssignDiv].

Definition syms_36 : list ts_symbol :=
  [sym_kGeneric; sym_kOperator; sym_kAsm; sym_kBegin; sym_kClass; sym_kConst; sym_kConstructor;
   sym_kDestructor; sym_kExports; sym_kFunction; sym_kLabel; sym_kProcedure; sym_kResourcestring;
   sym_kThreadvar; sym_kType; sym_kUses; sym_kVar; aux_sym_ppUsesBlock_token1].

Definition syms_37 : list ts_symbol :=
  [sym_kAnd; sym_kAs; sym_kDiv; sym_kElse; sym_kEnd; sym_kFinalization; sym_kImplementation;
   sym_kIn; sym_kInitialization; sym_kInterface; sym_kIs; sym_kMod; sym_kNot; sym_kOr; sym_kShl;
   sym_kShr; sym_kXor; anon_sym_SEMI; anon_sym_LBRACK; anon_sym_DOT; sym_kEq; sym_kNeq; sym_kLte;
   sym_kGte; sym_kHat; sym_kAssign; sym_kAssignAdd; sym_kAssignSub; sym_kAssignMul;
   sym_kAssignDiv].

Definition syms_38 : list ts_symbol :=
  [sym_kAbsolute; anon_sym_SEMI; sym_kEq; sym_kAssign; sym_kAssignAdd; sym_kAssignSub;
   sym_kAssignMul; sym_kAssignDiv].

Definition syms_39 : list ts_symbol :=
  [sym_kElse; sym_kUntil; anon_sym_SEMI; sym_kAssign; sym_kAssignAdd; sym_kAssignSub;
   sym_kAssignMul; sym_kAssignDiv].

Definition syms_40 : list ts_symbol :=
  [sym_kAsm; sym_kBegin; sym_kExports; sym_kLabel; sym_kUses].

Definition syms_41 : list ts_symbol :=
  [sym_identifier; sym_kDefault; sym_kNodefault; sym_kDispId; sym_kGeneric; sym_kOperator;
   sym_kPublic; sym_kStatic; sym_kVirtual; sym_kAbstract; sym_kDynamic; sym_kOverride;
   sym_kOverload; sym_kReintroduce; sym_kStdcall; sym_kCdecl; sym_kCppdecl; sym_kPascal;
   sym_kRegister; sym_kMwpascal; sym_kMessage; sym_kDeprecated; sym_kExperimental; sym_kPlatform;
   sym_kUnimplemented; sym_kCvar; sym_kExport; sym_kFar; sym_kNear; sym_kSafecall;
   sym_kAssembler; sym_kNostackframe; sym_kInterrupt; sym_kNoreturn; sym_kIocheck; sym_kLocal;
   sym_kHardfloat; sym_kSoftfloat; sym_kMs_abi_default; sym_kMs_abi_cdecl; sym_kSaveregisters;
   sym_kSysv_abi_default; sym_kSysv_abi_cdecl; sym_kVectorcall; sym_kVarargs; sym_kWinapi;
   sym_kAlias; sym_kClass; sym_kConstructor; sym_kDestructor; sym_kFunction; sym_kProcedure;
   sym_kProperty].

Definition syms_42 : list ts_symbol :=
  [sym_kElse; sym_kEnd; anon_sym_SEMI; sym_kAssign; sym_kAssignAdd; sym_kAssignSub;
   sym_kAssignMul; sym_kAssignDiv].

Definition syms_43 : list ts_symbol :=
  [sym_kOtherwise; sym_kElse; sym_kEnd].

Definition syms_44 : list ts_symbol :=
  [aux_sym_ppUsesBlock_token2; aux_sym_ppUsesBlock_token3].

Definition syms_45 : list ts_symbol :=
  [sym_kElse; sym_kEnd; sym_kFinalization; sym_kImplementation; sym_kInitialization;
   sym_kInterface].

Definition syms_46 : list ts_symbol :=
  [sym_kAnd; sym_kAs; sym_kDiv; sym_kEnd; sym_kFinalization; sym_kImplementation; sym_kIn;
   sym_kInitialization; sym_kInterface; sym_kIs; sym_kMod; sym_kNot; sym_kOr; sym_kShl; sym_kShr;
   sym_kXor; anon_sym_SEMI; anon_sym_LBRACK; anon_sym_DOT; sym_kEq; sym_kNeq; sym_kLte; sym_kGte;
   sym_kHat; sym_kAssign; sym_kAssignAdd; sym_kAssignSub; sym_kAssignMul; sym_kAssignDiv].

Definition syms_47 : list ts_symbol :=
  [sym_kUntil; anon_sym_SEMI; sym_kAssign; sym_kAssignAdd; sym_kAssignSub; sym_kAssignMul;
   sym_kAssignDiv].

Definition syms_48 : list ts_symbol :=
  [sym_kElse; anon_sym_SEMI; sym_kAssign; sym_kAssignAdd; sym_kAssignSub; sym_kAssignMul;
   sym_kAssignDiv].

Definition syms_49 : list ts_symbol :=
  [sym_identifier; sym_kDefault; sym_kNodefault; sym_kDispId; sym_kGeneric; sym_kOperator;
   sym_kPublic; sym_kStatic; sym_kVirtual; sym_kAbstract; sym_kDynamic; sym_kOverride;
   sym_kOverload; sym_kReintroduce; sym_kStdcall; sym_kCdecl; sym_kCppdecl; sym_kPascal;
   sym_kRegister; sym_kMwpascal; sym_kMessage; sym_kDeprecated; sym_kExperimental; sym_kPlatform;
   sym_kUnimplemented; sym_kCvar; sym_kExport; sym_kFar; sym_kNear; sym_kSafecall;
   sym_kAssembler; sym_kNostackframe; sym_kInterrupt; sym_kNoreturn; sym_kIocheck; sym_kLocal;
   sym_kHardfloat; sym_kSoftfloat; sym_kMs_abi_default; sym_kMs_abi_cdecl; sym_kSaveregisters;
   sym_kSysv_abi_default; sym_kSysv_abi_cdecl; sym_kVectorcall; sym_kVarargs; sym_kWinapi;
   sym_kAlias; sym_kClass; sym_kConstructor; sym_kDestructor; sym_kFunction; sym_kProcedure;
   sym_kProperty; anon_sym_LBRACK].

Definition syms_50 : list ts_symbol :=
  [sym_kGeneric; sym_kOperator; sym_kAnd; sym_kAs; sym_kAsm; sym_kBegin; sym_kClass; sym_kConst;
   sym_kConstructor; sym_kDestructor; sym_kDiv; sym_kEnd; sym_kExports; sym_kFinalization;
   sym_kFunction; sym_kImplementation; sym_kIn; sym_kInitialization; sym_kInterface; sym_kIs;
   sym_kLabel; sym_kMod; sym_kNot; sym_kOr; sym_kProcedure; sym_kResourcestring; sym_kShl;
   sym_kShr; sym_kThreadvar; sym_kType; sym_kUses; sym_kVar; sym_kXor; anon_sym_SEMI;
   anon_sym_LBRACK; aux_sym_ppUsesBlock_token1; anon_sym_DOT; sym_kEq; sym_kNeq; sym_kLte;
   sym_kGte; sym_kHat; sym_kAssign; sym_kAssignAdd; sym_kAssignSub; sym_kAssignMul;
   sym_kAssignDiv].

Definition syms_51 : list ts_symbol :=
  [sym_kEnd; anon_sym_SEMI; sym_kAssign; sym_kAssignAdd; sym_kAssignSub; sym_kAssignMul;
   sym_kAssignDiv].

Definition syms_52 : list ts_symbol :=
  [sym_ppFragmentExpr; sym_identifier].

Definition syms_53 : list ts_symbol :=
  [sym_kNil; sym_kTrue; sym_kFalse].

Definition syms_54 : list ts_symbol :=
  [sym_kRead; sym_kWrite; sym_kImplements; sym_kDefault; sym_kNodefault; sym_kStored; sym_kIndex;
   sym_kDispId; sym_kGeneric; sym_kOperator; sym_kAnd; sym_kAs; sym_kAsm; sym_kBegin; sym_kClass;
   sym_kConst; sym_kConstructor; sym_kDestructor; sym_kDiv; sym_kExports; sym_kFunction; sym_kIn;
   sym_kIs; sym_kLabel; sym_kMod; sym_kNot; sym_kOf; sym_kOr; sym_kProcedure;
   sym_kResourcestring; sym_kShl; sym_kShr; sym_kThreadvar; sym_kType; sym_kUses; sym_kVar;
   sym_kXor; anon_sym_SEMI; anon_sym_LBRACK; aux_sym_ppUsesBlock_token1; anon_sym_DOT; sym_kEq;
   sym_kNeq; sym_kLte; sym_kGte; sym_kAdd; sym_kSub; sym_kMul; sym_kHat].

Definition syms_55 : list ts_symbol :=
  [sym_kRead; sym_kWrite; sym_kImplements; sym_kDefault; sym_kNodefault; sym_kStored; sym_kIndex;
   sym_kDispId; sym_kAnd; sym_kAs; sym_kDiv; sym_kIn; sym_kIs; sym_kMod; sym_kNot; sym_kOr;
   sym_kShl; sym_kShr; sym_kXor; anon_sym_SEMI; anon_sym_COMMA; anon_sym_LBRACK; anon_sym_DOT;
   sym_kEq; sym_kNeq; sym_kLte; sym_kGte; sym_kAdd; sym_kSub; sym_kMul; sym_kHat].

Definition syms_56 : list ts_symbol :=
  [sym__initializer; sym_recInitializer; sym_arrInitializer].

Definition syms_57 : list ts_symbol :=
  [sym_ppFragmentExpr; sym_kNil; sym_kTrue; sym_kFalse].

Definition syms_58 : list ts_symbol :=
  [anon_sym_SEMI; sym_kAssign; sym_kAssignAdd; sym_kAssignSub; sym_kAssignMul; sym_kAssignDiv].

Definition syms_59 : list ts_symbol :=
  [sym_kRead; sym_kWrite; sym_kImplements; sym_kDefault; sym_kNodefault; sym_kStored; sym_kIndex;
   sym_kDispId; sym_kGeneric; sym_kOperator; sym_kAnd; sym_kAs; sym_kAsm; sym_kBegin; sym_kClass;
   sym_kConst; sym_kConstructor; sym_kDestructor; sym_kDiv; sym_kExports; sym_kFunction; sym_kIn;
   sym_kIs; sym_kLabel; sym_kMod; sym_kNot; sym_kOr; sym_kProcedure; sym_kResourcestring;
   sym_kShl; sym_kShr; sym_kThreadvar; sym_kType; sym_kUses; sym_kVar; sym_kXor; anon_sym_SEMI;
   anon_sym_COMMA; anon_sym_LBRACK; aux_sym_ppUsesBlock_token1; anon_sym_DOT; sym_kEq; sym_kNeq;
   sym_kLte; sym_kGte; sym_kAdd; sym_kSub; sym_kMul; sym_kHat].

Definition syms_60 : list ts_symbol :=
  [sym_kEnd; sym_kFinalization; sym_kImplementation; sym_kInitialization; sym_kInterface].

Definition syms_61 : list ts_symbol :=
  [sym_kIn; sym_kAssign; sym_kAssignAdd; sym_kAssignSub; sym_kAssignMul; sym_kAssignDiv].

Definition syms_62 : list ts_symbol :=
  [sym__literalStringMultiline; sym_identifier; sym_kGeneric; sym_kOperator; sym_kPublished;
   sym_kPublic; sym_kProtected; sym_kPrivate; sym_kStrict; sym_kRequired; sym_kOptional;
   sym_kAnd; sym_kAs; sym_kCase; sym_kClass; sym_kConst; sym_kConstructor; sym_kDestructor;
   sym_kDiv; sym_kEnd; sym_kFunction; sym_kIn; sym_kIs; sym_kMod; sym_kNot; sym_kOr;
   sym_kProcedure; sym_kProperty; sym_kResourcestring; sym_kShl; sym_kShr; sym_kThreadvar;
   sym_kType; sym_kVar; sym_kXor; anon_sym_SEMI; anon_sym_LBRACK; aux_sym__literalString_token1;
   anon_sym_POUND; aux_sym_ppUsesBlock_token1; anon_sym_DOT; sym_kEq; sym_kNeq; sym_kLte;
   sym_kGte; sym_kAdd; sym_kSub; sym_kMul; sym_kHat].

Definition syms_63 : list ts_symbol :=
  [sym__anonymousRecord; sym_declSubRange; sym_declEnum; sym_declSet; sym_declArray;
   sym_declFile; sym_declString; sym_declProcRef; sym_declMetaClass].

Definition syms_64 : list ts_symbol :=
  [sym_kRead; sym_kWrite; sym_kImplements; sym_kDefault; sym_kNodefault; sym_kStored; sym_kIndex;
   sym_kDispId; sym_kAnd; sym_kAs; sym_kDiv; sym_kIn; sym_kIs; sym_kMod; sym_kNot; sym_kOf;
   sym_kOr; sym_kShl; sym_kShr; sym_kXor; anon_sym_SEMI; anon_sym_LBRACK; anon_sym_DOT; sym_kEq;
   sym_kNeq; sym_kLte; sym_kGte; sym_kAdd; sym_kSub; sym_kMul; sym_kHat].

Definition syms_65 : list ts_symbol :=
  [sym_kConst; sym_kResourcestring].

Definition syms_66 : list ts_symbol :=
  [sym_kThreadvar; sym_kVar].

Definition syms_67 : list ts_symbol :=
  [sym_kAbstract; sym_kSealed].

Definition syms_68 : list ts_symbol :=
  [aux_sym__declFields; sym_declField].

Definition syms_69 : list ts_symbol :=
  [sym_declSection; sym_ppDeclSection; aux_sym__declClass_repeat1].

Definition syms_70 : list ts_symbol :=
  [sym_kPublished; sym_kPublic; sym_kProtected; sym_kPrivate; sym_kRequired; sym_kOptional].

Definition syms_71 : list ts_symbol :=
  [aux_sym__classDeclarations; sym_declTypes; sym_declVars; sym_declConsts; sym_declProc;
   sym_declProp].

Definition syms_72 : list ts_symbol :=
  [sym_kOtherwise; sym_kAnd; sym_kAs; sym_kDiv; sym_kElse; sym_kEnd; sym_kIn; sym_kIs; sym_kMod;
   sym_kNot; sym_kOr; sym_kShl; sym_kShr; sym_kXor; anon_sym_SEMI; anon_sym_LBRACK; anon_sym_DOT;
   sym_kEq; sym_kNeq; sym_kLte; sym_kGte; sym_kHat; sym_kAssign; sym_kAssignAdd; sym_kAssignSub;
   sym_kAssignMul; sym_kAssignDiv].

Definition syms_73 : list ts_symbol :=
  [sym_kGeneric; sym_kOperator; sym_kAnd; sym_kAs; sym_kAsm; sym_kBegin; sym_kClass; sym_kConst;
   sym_kConstructor; sym_kDestructor; sym_kDiv; sym_kElse; sym_kExcept; sym_kExports;
   sym_kFinally; sym_kFunction; sym_kIn; sym_kIs; sym_kLabel; sym_kMod; sym_kNot; sym_kOr;
   sym_kProcedure; sym_kResourcestring; sym_kShl; sym_kShr; sym_kThreadvar; sym_kType; sym_kUses;
   sym_kVar; sym_kXor; anon_sym_SEMI; anon_sym_LBRACK; aux_sym_ppUsesBlock_token1; anon_sym_DOT;
   sym_kEq; sym_kNeq; sym_kLte; sym_kGte; sym_kHat; sym_kAssign; sym_kAssignAdd; sym_kAssignSub;
   sym_kAssignMul; sym_kAssignDiv].

Definition syms_74 : list ts_symbol :=
  [sym_kOf; anon_sym_SEMI; anon_sym_RBRACK; anon_sym_RPAREN; sym_kEq].

Definition syms_75 : list ts_symbol :=
  [anon_sym_SEMI; anon_sym_RBRACK; anon_sym_RPAREN; sym_kEq; sym_kGt].

Definition syms_76 : list ts_symbol :=
  [sym_kGeneric; sym_kOtherwise; sym_kOperator; sym_kAnd; sym_kAs; sym_kAsm; sym_kBegin;
   sym_kClass; sym_kConst; sym_kConstructor; sym_kDestructor; sym_kDiv; sym_kElse; sym_kEnd;
   sym_kExports; sym_kFunction; sym_kIn; sym_kIs; sym_kLabel; sym_kMod; sym_kNot; sym_kOr;
   sym_kProcedure; sym_kResourcestring; sym_kShl; sym_kShr; sym_kThreadvar; sym_kType; sym_kUses;
   sym_kVar; sym_kXor; anon_sym_SEMI; anon_sym_LBRACK; aux_sym_ppUsesBlock_token1; anon_sym_DOT;
   sym_kEq; sym_kNeq; sym_kLte; sym_kGte; sym_kHat; sym_kAssign; sym_kAssignAdd; sym_kAssignSub;
   sym_kAssignMul; sym_kAssignDiv].

Definition syms_77 : list ts_symbol :=
  [sym_kAnd; sym_kAs; sym_kDiv; sym_kElse; sym_kExcept; sym_kFinally; sym_kIn; sym_kIs; sym_kMod;
   sym_kNot; sym_kOr; sym_kShl; sym_kShr; sym_kXor; anon_sym_SEMI; anon_sym_LBRACK; anon_sym_DOT;
   sym_kEq; sym_kNeq; sym_kLte; sym_kGte; sym_kHat; sym_kAssign; sym_kAssignAdd; sym_kAssignSub;
   sym_kAssignMul; sym_kAssignDiv].

Definition syms_78 : list ts_symbol :=
  [sym_kIndex; sym_kName].

Definition syms_79 : list ts_symbol :=
  [sym_kElse; sym_kExcept; sym_kFinally].

Definition syms_80 : list ts_symbol :=
  [sym_kGeneric; sym_kOperator; sym_kAnd; sym_kAs; sym_kAsm; sym_kBegin; sym_kClass; sym_kConst;
   sym_kConstructor; sym_kDestructor; sym_kDiv; sym_kExcept; sym_kExports; sym_kFinally;
   sym_kFunction; sym_kIn; sym_kIs; sym_kLabel; sym_kMod; sym_kNot; sym_kOr; sym_kProcedure;
   sym_kResourcestring; sym_kShl; sym_kShr; sym_kThreadvar; sym_kType; sym_kUses; sym_kVar;
   sym_kXor; anon_sym_SEMI; anon_sym_LBRACK; aux_sym_ppUsesBlock_token1; anon_sym_DOT; sym_kEq;
   sym_kNeq; sym_kLte; sym_kGte; sym_kHat; sym_kAssign; sym_kAssignAdd; sym_kAssignSub;
   sym_kAssignMul; sym_kAssignDiv].

Definition syms_81 : list ts_symbol :=
  [sym_kAnd; sym_kAs; sym_kDiv; sym_kElse; sym_kEnd; sym_kIn; sym_kIs; sym_kMod; sym_kNot;
   sym_kOr; sym_kShl; sym_kShr; sym_kXor; anon_sym_SEMI; anon_sym_LBRACK; anon_sym_DOT; sym_kEq;
   sym_kNeq; sym_kLte; sym_kGte; sym_kHat; sym_kAssign; sym_kAssignAdd; sym_kAssignSub;
   sym_kAssignMul; sym_kAssignDiv].

Definition syms_82 : list ts_symbol :=
  [sym_kAnd; sym_kAs; sym_kDiv; sym_kElse; sym_kIn; sym_kIs; sym_kMod; sym_kNot; sym_kOr;
   sym_kShl; sym_kShr; sym_kUntil; sym_kXor; anon_sym_SEMI; anon_sym_LBRACK; anon_sym_DOT;
   sym_kEq; sym_kNeq; sym_kLte; sym_kGte; sym_kHat; sym_kAssign; sym_kAssignAdd; sym_kAssignSub;
   sym_kAssignMul; sym_kAssignDiv].

Definition syms_83 : list ts_symbol :=
  [sym_kLt; sym_kGt].

Definition syms_84 : list ts_symbol :=
  [sym_kOr; sym_kXor; sym_kAdd; sym_kSub].

Definition syms_85 : list ts_symbol :=
  [sym_kIn; sym_kEq; sym_kNeq; sym_kLte; sym_kGte].

Definition syms_86 : list ts_symbol :=
  [sym_kAnd; sym_kDiv; sym_kMod; sym_kShl; sym_kShr; sym_kMul].

Definition syms_87 : list ts_symbol :=
  [sym_identifier; sym_kGeneric; sym_kOperator; sym_kPublished; sym_kPublic; sym_kProtected;
   sym_kPrivate; sym_kStrict; sym_kRequired; sym_kOptional; sym_kCase; sym_kClass; sym_kConst;
   sym_kConstructor; sym_kDestructor; sym_kEnd; sym_kFunction; sym_kProcedure; sym_kProperty;
   sym_kResourcestring; sym_kThreadvar; sym_kType; sym_kVar; anon_sym_SEMI; anon_sym_LBRACK;
   aux_sym_ppUsesBlock_token1; anon_sym_DOT].

Definition syms_88 : list ts_symbol :=
  [sym_kGeneric; sym_kRaiseAt; sym_kOperator; sym_kAnd; sym_kAs; sym_kAsm; sym_kBegin;
   sym_kClass; sym_kConst; sym_kConstructor; sym_kDestructor; sym_kDiv; sym_kElse; sym_kEnd;
   sym_kExports; sym_kFinalization; sym_kFunction; sym_kImplementation; sym_kIn;
   sym_kInitialization; sym_kInterface; sym_kIs; sym_kLabel; sym_kMod; sym_kNot; sym_kOr;
   sym_kProcedure; sym_kResourcestring; sym_kShl; sym_kShr; sym_kThreadvar; sym_kType; sym_kUses;
   sym_kVar; sym_kXor; anon_sym_SEMI; anon_sym_LBRACK; aux_sym_ppUsesBlock_token1; anon_sym_DOT;
   sym_kEq; sym_kNeq; sym_kLte; sym_kGte; sym_kAdd; sym_kSub; sym_kMul; sym_kHat].

Definition syms_89 : list ts_symbol :=
  [sym_kAbsolute; sym_kOf; anon_sym_SEMI; sym_kEq].

Definition syms_90 : list ts_symbol :=
  [anon_sym_SEMI; anon_sym_RBRACK; anon_sym_RPAREN; sym_kEq].

Definition syms_91 : list ts_symbol :=
  [sym_identifier; sym_kGeneric; sym_kOperator; sym_kPublished; sym_kPublic; sym_kProtected;
   sym_kPrivate; sym_kStrict; sym_kRequired; sym_kOptional; sym_kAnd; sym_kAs; sym_kCase;
   sym_kClass; sym_kConst; sym_kConstructor; sym_kDestructor; sym_kDiv; sym_kEnd; sym_kFunction;
   sym_kIn; sym_kIs; sym_kMod; sym_kNot; sym_kOr; sym_kProcedure; sym_kProperty;
   sym_kResourcestring; sym_kShl; sym_kShr; sym_kThreadvar; sym_kType; sym_kVar; sym_kXor;
   anon_sym_SEMI; anon_sym_LBRACK; aux_sym_ppUsesBlock_token1; anon_sym_DOT; sym_kEq; sym_kNeq;
   sym_kLte; sym_kGte; sym_kAdd; sym_kSub; sym_kMul].

Definition syms_92 : list ts_symbol :=
  [sym_kAnd; sym_kAs; sym_kDiv; sym_kExcept; sym_kFinally; sym_kIn; sym_kIs; sym_kMod; sym_kNot;
   sym_kOr; sym_kShl; sym_kShr; sym_kXor; anon_sym_SEMI; anon_sym_LBRACK; anon_sym_DOT; sym_kEq;
   sym_kNeq; sym_kLte; sym_kGte; sym_kHat; sym_kAssign; sym_kAssignAdd; sym_kAssignSub;
   sym_kAssignMul; sym_kAssignDiv].

Definition syms_93 : list ts_symbol :=
  [sym_kRaiseAt; sym_kAnd; sym_kAs; sym_kDiv; sym_kElse; sym_kEnd; sym_kFinalization;
   sym_kImplementation; sym_kIn; sym_kInitialization; sym_kInterface; sym_kIs; sym_kMod;
   sym_kNot; sym_kOr; sym_kShl; sym_kShr; sym_kXor; anon_sym_SEMI; anon_sym_LBRACK; anon_sym_DOT;
   sym_kEq; sym_kNeq; sym_kLte; sym_kGte; sym_kAdd; sym_kSub; sym_kMul; sym_kHat].

Definition syms_94 : list ts_symbol :=
  [anon_sym_LPAREN; sym_kLt; sym_kGt].

Definition syms_95 : list ts_symbol :=
  [sym_identifier; sym_kGeneric; sym_kOperator; sym_kPublished; sym_kPublic; sym_kProtected;
   sym_kPrivate; sym_kStrict; sym_kRequired; sym_kOptional; sym_kCase; sym_kClass; sym_kConst;
   sym_kConstructor; sym_kDestructor; sym_kEnd; sym_kFunction; sym_kIn; sym_kIs; sym_kNot;
   sym_kProcedure; sym_kProperty; sym_kResourcestring; sym_kThreadvar; sym_kType; sym_kVar;
   anon_sym_SEMI; anon_sym_LBRACK; aux_sym_ppUsesBlock_token1; anon_sym_DOT; sym_kEq; sym_kNeq;
   sym_kLte; sym_kGte].

Definition syms_96 : list ts_symbol :=
  [sym_identifier; sym_kGeneric; sym_kOperator; sym_kPublished; sym_kPublic; sym_kProtected;
   sym_kPrivate; sym_kStrict; sym_kRequired; sym_kOptional; sym_kCase; sym_kClass; sym_kConst;
   sym_kConstructor; sym_kDestructor; sym_kEnd; sym_kFunction; sym_kIn; sym_kIs; sym_kNot;
   sym_kOr; sym_kProcedure; sym_kProperty; sym_kResourcestring; sym_kThreadvar; sym_kType;
   sym_kVar; sym_kXor; anon_sym_SEMI; anon_sym_LBRACK; aux_sym_ppUsesBlock_token1; anon_sym_DOT;
   sym_kEq; sym_kNeq; sym_kLte; sym_kGte; sym_kAdd; sym_kSub].

Definition syms_97 : list ts_symbol :=
  [anon_sym_LPAREN; sym_kFdiv].

Definition syms_98 : list ts_symbol :=
  [sym_identifier; sym_kGeneric; sym_kOperator; sym_kPublished; sym_kPublic; sym_kProtected;
   sym_kPrivate; sym_kStrict; sym_kRequired; sym_kOptional; sym_kAnd; sym_kAs; sym_kCase;
   sym_kClass; sym_kConst; sym_kConstructor; sym_kDestructor; sym_kDiv; sym_kEnd; sym_kFunction;
   sym_kIn; sym_kIs; sym_kMod; sym_kNot; sym_kOr; sym_kProcedure; sym_kProperty;
   sym_kResourcestring; sym_kShl; sym_kShr; sym_kThreadvar; sym_kType; sym_kVar; sym_kXor;
   anon_sym_SEMI; anon_sym_LBRACK; aux_sym_ppUsesBlock_token1; sym_kEq; sym_kNeq; sym_kLte;
   sym_kGte; sym_kAdd; sym_kSub; sym_kMul; sym_kHat].

Definition syms_99 : list ts_symbol :=
  [sym_kGeneric; sym_kOperator; sym_kAnd; sym_kAs; sym_kAsm; sym_kBegin; sym_kClass; sym_kConst;
   sym_kConstructor; sym_kDestructor; sym_kDiv; sym_kElse; sym_kExports; sym_kFunction; sym_kIn;
   sym_kIs; sym_kLabel; sym_kMod; sym_kNot; sym_kOr; sym_kProcedure; sym_kResourcestring;
   sym_kShl; sym_kShr; sym_kThreadvar; sym_kType; sym_kUntil; sym_kUses; sym_kVar; sym_kXor;
   anon_sym_SEMI; anon_sym_LBRACK; aux_sym_ppUsesBlock_token1; anon_sym_DOT; sym_kEq; sym_kNeq;
   sym_kLte; sym_kGte; sym_kHat; sym_kAssign; sym_kAssignAdd; sym_kAssignSub; sym_kAssignMul;
   sym_kAssignDiv].

Definition syms_100 : list ts_symbol :=
  [sym_kGeneric; sym_kOperator; sym_kAnd; sym_kAs; sym_kAsm; sym_kBegin; sym_kClass; sym_kConst;
   sym_kConstructor; sym_kDestructor; sym_kDiv; sym_kElse; sym_kEnd; sym_kExports; sym_kFunction;
   sym_kIn; sym_kIs; sym_kLabel; sym_kMod; sym_kNot; sym_kOr; sym_kProcedure;
   sym_kResourcestring; sym_kShl; sym_kShr; sym_kThreadvar; sym_kType; sym_kUses; sym_kVar;
   sym_kXor; anon_sym_SEMI; anon_sym_LBRACK; aux_sym_ppUsesBlock_token1; anon_sym_DOT; sym_kEq;
   sym_kNeq; sym_kLte; sym_kGte; sym_kHat; sym_kAssign; sym_kAssignAdd; sym_kAssignSub;
   sym_kAssignMul; sym_kAssignDiv].

Definition syms_101 : list ts_symbol :=
  [sym_kGt; sym_kFdiv].

Definition syms_102 : list ts_symbol :=
  [sym_identifier; sym_kGeneric; sym_kOperator; sym_kPublished; sym_kPublic; sym_kProtected;
   sym_kPrivate; sym_kStrict; sym_kRequired; sym_kOptional; sym_kAnd; sym_kAs; sym_kCase;
   sym_kClass; sym_kConst; sym_kConstructor; sym_kDestructor; sym_kDiv; sym_kEnd; sym_kFunction;
   sym_kIn; sym_kIs; sym_kMod; sym_kNot; sym_kOr; sym_kProcedure; sym_kProperty;
   sym_kResourcestring; sym_kShl; sym_kShr; sym_kThreadvar; sym_kType; sym_kVar; sym_kXor;
   anon_sym_SEMI; aux_sym_ppUsesBlock_token1; sym_kEq; sym_kNeq; sym_kLte; sym_kGte; sym_kAdd;
   sym_kSub; sym_kMul; sym_kHat].

Definition syms_103 : list ts_symbol :=
  [sym_kAnd; sym_kAs; sym_kDiv; sym_kElse; sym_kEnd; sym_kFinalization; sym_kImplementation;
   sym_kIn; sym_kInitialization; sym_kInterface; sym_kIs; sym_kMod; sym_kNot; sym_kOr; sym_kShl;
   sym_kShr; sym_kXor; anon_sym_SEMI; anon_sym_LBRACK; anon_sym_DOT; sym_kEq; sym_kNeq; sym_kLte;
   sym_kGte; sym_kAdd; sym_kSub; sym_kMul; sym_kHat].

Definition syms_104 : list ts_symbol :=
  [sym_kAnd; sym_kAs; sym_kDiv; sym_kIn; sym_kIs; sym_kMod; sym_kNot; sym_kOr; sym_kShl;
   sym_kShr; sym_kUntil; sym_kXor; anon_sym_SEMI; anon_sym_LBRACK; anon_sym_DOT; sym_kEq;
   sym_kNeq; sym_kLte; sym_kGte; sym_kHat; sym_kAssign; sym_kAssignAdd; sym_kAssignSub;
   sym_kAssignMul; sym_kAssignDiv].

Definition syms_105 : list ts_symbol :=
  [sym_kOf; aux_sym_ppUsesBlock_token2; aux_sym_ppUsesBlock_token3].

Definition syms_106 : list ts_symbol :=
  [sym_kAnd; sym_kAs; sym_kDiv; sym_kEnd; sym_kIn; sym_kIs; sym_kMod; sym_kNot; sym_kOr;
   sym_kShl; sym_kShr; sym_kXor; anon_sym_SEMI; anon_sym_LBRACK; anon_sym_DOT; sym_kEq; sym_kNeq;
   sym_kLte; sym_kGte; sym_kHat; sym_kAssign; sym_kAssignAdd; sym_kAssignSub; sym_kAssignMul;
   sym_kAssignDiv].

Definition syms_107 : list ts_symbol :=
  [sym_procAttribute; sym_procExternal].

Definition syms_108 : list ts_symbol :=
  [sym_kGeneric; sym_kOperator; sym_kAnd; sym_kAs; sym_kAsm; sym_kBegin; sym_kClass; sym_kConst;
   sym_kConstructor; sym_kDestructor; sym_kDiv; sym_kEnd; sym_kExports; sym_kFunction; sym_kIn;
   sym_kIs; sym_kLabel; sym_kMod; sym_kNot; sym_kOr; sym_kProcedure; sym_kResourcestring;
   sym_kShl; sym_kShr; sym_kThreadvar; sym_kType; sym_kUses; sym_kVar; sym_kXor; anon_sym_SEMI;
   anon_sym_LBRACK; aux_sym_ppUsesBlock_token1; anon_sym_DOT; sym_kEq; sym_kNeq; sym_kLte;
   sym_kGte; sym_kHat; sym_kAssign; sym_kAssignAdd; sym_kAssignSub; sym_kAssignMul;
   sym_kAssignDiv].

Definition syms_109 : list ts_symbol :=
  [sym_kElse; sym_kUntil].

Definition syms_110 : list ts_symbol :=
  [sym_kExcept; sym_kFinally].

Definition syms_111 : list ts_symbol :=
  [anon_sym_SEMI; aux_sym_ppUsesBlock_token2; aux_sym_ppUsesBlock_token3].

Definition syms_112 : list ts_symbol :=
  [sym_kElse; sym_kEnd].

Definition syms_113 : list ts_symbol :=
  [sym_kAnd; sym_kAs; sym_kDiv; sym_kElse; sym_kIn; sym_kIs; sym_kMod; sym_kNot; sym_kOr;
   sym_kShl; sym_kShr; sym_kXor; anon_sym_SEMI; anon_sym_LBRACK; anon_sym_DOT; sym_kEq; sym_kNeq;
   sym_kLte; sym_kGte; sym_kHat; sym_kAssign; sym_kAssignAdd; sym_kAssignSub; sym_kAssignMul;
   sym_kAssignDiv].

Definition syms_114 : list ts_symbol :=
  [sym_kRaiseAt; sym_kAnd; sym_kAs; sym_kDiv; sym_kEnd; sym_kFinalization; sym_kImplementation;
   sym_kIn; sym_kInitialization; sym_kInterface; sym_kIs; sym_kMod; sym_kNot; sym_kOr; sym_kShl;
   sym_kShr; sym_kXor; anon_sym_SEMI; anon_sym_LBRACK; anon_sym_DOT; sym_kEq; sym_kNeq; sym_kLte;
   sym_kGte; sym_kAdd; sym_kSub; sym_kMul; sym_kHat].

Definition syms_115 : list ts_symbol :=
  [sym_kAbsolute; sym_kAnd; sym_kAs; sym_kDiv; sym_kIn; sym_kIs; sym_kMod; sym_kNot; sym_kOr;
   sym_kShl; sym_kShr; sym_kXor; anon_sym_SEMI; anon_sym_LBRACK; anon_sym_DOT; sym_kEq; sym_kNeq;
   sym_kLte; sym_kGte; sym_kHat; sym_kAssign; sym_kAssignAdd; sym_kAssignSub; sym_kAssignMul;
   sym_kAssignDiv].

Definition syms_116 : list ts_symbol :=
  [sym_kGeneric; sym_kRaiseAt; sym_kOperator; sym_kAnd; sym_kAs; sym_kAsm; sym_kBegin;
   sym_kClass; sym_kConst; sym_kConstructor; sym_kDestructor; sym_kDiv; sym_kEnd; sym_kExports;
   sym_kFinalization; sym_kFunction; sym_kImplementation; sym_kIn; sym_kInitialization;
   sym_kInterface; sym_kIs; sym_kLabel; sym_kMod; sym_kNot; sym_kOr; sym_kProcedure;
   sym_kResourcestring; sym_kShl; sym_kShr; sym_kThreadvar; sym_kType; sym_kUses; sym_kVar;
   sym_kXor; anon_sym_SEMI; anon_sym_LBRACK; aux_sym_ppUsesBlock_token1; anon_sym_DOT; sym_kEq;
   sym_kNeq; sym_kLte; sym_kGte; sym_kAdd; sym_kSub; sym_kMul; sym_kHat].

Definition syms_117 : list ts_symbol :=
  [sym_kAbsolute; anon_sym_SEMI; sym_kEq].

Definition syms_118 : list ts_symbol :=
  [sym_kGeneric; sym_kOperator; sym_kPublished; sym_kPublic; sym_kProtected; sym_kPrivate;
   sym_kStrict; sym_kRequired; sym_kOptional; sym_kAnd; sym_kAs; sym_kCase; sym_kClass;
   sym_kConst; sym_kConstructor; sym_kDestructor; sym_kDiv; sym_kEnd; sym_kFunction; sym_kIn;
   sym_kIs; sym_kMod; sym_kNot; sym_kOr; sym_kProcedure; sym_kProperty; sym_kResourcestring;
   sym_kShl; sym_kShr; sym_kThreadvar; sym_kType; sym_kVar; sym_kXor; anon_sym_SEMI;
   anon_sym_LBRACK; aux_sym_ppUsesBlock_token1; anon_sym_DOT; sym_kEq; sym_kNeq; sym_kLte;
   sym_kGte; sym_kAdd; sym_kSub; sym_kMul; sym_kHat].

Definition syms_119 : list ts_symbol :=
  [sym_kGeneric; sym_kOperator; sym_kAnd; sym_kAs; sym_kAsm; sym_kBegin; sym_kClass; sym_kConst;
   sym_kConstructor; sym_kDestructor; sym_kDiv; sym_kExports; sym_kFunction; sym_kIn; sym_kIs;
   sym_kLabel; sym_kMod; sym_kNot; sym_kOr; sym_kProcedure; sym_kResourcestring; sym_kShl;
   sym_kShr; sym_kThreadvar; sym_kType; sym_kUntil; sym_kUses; sym_kVar; sym_kXor; anon_sym_SEMI;
   anon_sym_LBRACK; aux_sym_ppUsesBlock_token1; anon_sym_DOT; sym_kEq; sym_kNeq; sym_kLte;
   sym_kGte; sym_kHat; sym_kAssign; sym_kAssignAdd; sym_kAssignSub; sym_kAssignMul;
   sym_kAssignDiv].

Definition syms_120 : list ts_symbol :=
  [sym_kAbsolute; sym_kGeneric; sym_kOperator; sym_kAnd; sym_kAs; sym_kAsm; sym_kBegin;
   sym_kClass; sym_kConst; sym_kConstructor; sym_kDestructor; sym_kDiv; sym_kExports;
   sym_kFunction; sym_kIn; sym_kIs; sym_kLabel; sym_kMod; sym_kNot; sym_kOr; sym_kProcedure;
   sym_kResourcestring; sym_kShl; sym_kShr; sym_kThreadvar; sym_kType; sym_kUses; sym_kVar;
   sym_kXor; anon_sym_SEMI; anon_sym_LBRACK; aux_sym_ppUsesBlock_token1; anon_sym_DOT; sym_kEq;
   sym_kNeq; sym_kLte; sym_kGte; sym_kHat; sym_kAssign; sym_kAssignAdd; sym_kAssignSub;
   sym_kAssignMul; sym_kAssignDiv].

Definition syms_121 : list ts_symbol :=
  [sym_kGeneric; sym_kOperator; sym_kAnd; sym_kAs; sym_kAsm; sym_kBegin; sym_kClass; sym_kConst;
   sym_kConstructor; sym_kDestructor; sym_kDiv; sym_kElse; sym_kExports; sym_kFunction; sym_kIn;
   sym_kIs; sym_kLabel; sym_kMod; sym_kNot; sym_kOr; sym_kProcedure; sym_kResourcestring;
   sym_kShl; sym_kShr; sym_kThreadvar; sym_kType; sym_kUses; sym_kVar; sym_kXor; anon_sym_SEMI;
   anon_sym_LBRACK; aux_sym_ppUsesBlock_token1; anon_sym_DOT; sym_kEq; sym_kNeq; sym_kLte;
   sym_kGte; sym_kHat; sym_kAssign; sym_kAssignAdd; sym_kAssignSub; sym_kAssignMul;
   sym_kAssignDiv].

Definition syms_122 : list ts_symbol :=
  [sym_kGeneric; sym_kOperator; sym_kAnd; sym_kAs; sym_kAsm; sym_kBegin; sym_kClass; sym_kConst;
   sym_kConstructor; sym_kDestructor; sym_kDiv; sym_kElse; sym_kEnd; sym_kExports;
   sym_kFinalization; sym_kFunction; sym_kImplementation; sym_kIn; sym_kInitialization;
   sym_kInterface; sym_kIs; sym_kLabel; sym_kMod; sym_kNot; sym_kOr; sym_kProcedure;
   sym_kResourcestring; sym_kShl; sym_kShr; sym_kThreadvar; sym_kType; sym_kUses; sym_kVar;
   sym_kXor; anon_sym_SEMI; anon_sym_LBRACK; aux_sym_ppUsesBlock_token1; anon_sym_DOT; sym_kEq;
   sym_kNeq; sym_kLte; sym_kGte; sym_kAdd; sym_kSub; sym_kMul; sym_kHat].

Definition syms_123 : list ts_symbol :=
  [sym_kAnd; sym_kAs; sym_kDiv; sym_kEnd; sym_kFinalization; sym_kImplementation; sym_kIn;
   sym_kInitialization; sym_kInterface; sym_kIs; sym_kMod; sym_kNot; sym_kOr; sym_kShl; sym_kShr;
   sym_kXor; anon_sym_SEMI; anon_sym_LBRACK; anon_sym_DOT; sym_kEq; sym_kNeq; sym_kLte; sym_kGte;
   sym_kAdd; sym_kSub; sym_kMul; sym_kHat].

Definition syms_124 : list ts_symbol :=
  [sym_kGeneric; sym_kOperator; sym_kAnd; sym_kAs; sym_kAsm; sym_kBegin; sym_kClass; sym_kConst;
   sym_kConstructor; sym_kDestructor; sym_kDiv; sym_kEnd; sym_kExports; sym_kFinalization;
   sym_kFunction; sym_kImplementation; sym_kIn; sym_kInitialization; sym_kInterface; sym_kIs;
   sym_kLabel; sym_kMod; sym_kNot; sym_kOr; sym_kProcedure; sym_kResourcestring; sym_kShl;
   sym_kShr; sym_kThreadvar; sym_kType; sym_kUses; sym_kVar; sym_kXor; anon_sym_SEMI;
   anon_sym_LBRACK; aux_sym_ppUsesBlock_token1; anon_sym_DOT; sym_kEq; sym_kNeq; sym_kLte;
   sym_kGte; sym_kAdd; sym_kSub; sym_kMul; sym_kHat].

Definition syms_125 : list ts_symbol :=
  [sym_kAnd; sym_kAs; sym_kDiv; sym_kIn; sym_kIs; sym_kMod; sym_kNot; sym_kOr; sym_kShl;
   sym_kShr; sym_kXor; anon_sym_SEMI; anon_sym_LBRACK; anon_sym_DOT; sym_kEq; sym_kNeq; sym_kLte;
   sym_kGte; sym_kHat; sym_kAssign; sym_kAssignAdd; sym_kAssignSub; sym_kAssignMul;
   sym_kAssignDiv].

Definition syms_126 : list ts_symbol :=
  [sym_kGeneric; sym_kOperator; sym_kAnd; sym_kAs; sym_kAsm; sym_kBegin; sym_kClass; sym_kConst;
   sym_kConstructor; sym_kDestructor; sym_kDiv; sym_kExports; sym_kFunction; sym_kIn; sym_kIs;
   sym_kLabel; sym_kMod; sym_kNot; sym_kOr; sym_kProcedure; sym_kResourcestring; sym_kShl;
   sym_kShr; sym_kThreadvar; sym_kType; sym_kUses; sym_kVar; sym_kXor; anon_sym_LBRACK;
   aux_sym_ppUsesBlock_token1; anon_sym_DOT; sym_kEq; sym_kNeq; sym_kLte; sym_kGte; sym_kAdd;
   sym_kSub; sym_kMul; sym_kHat].

Definition syms_127 : list ts_symbol :=
  [sym_kDefault; sym_kNodefault; sym_kDispId; sym_kPublic; sym_kStatic; sym_kVirtual;
   sym_kAbstract; sym_kDynamic; sym_kOverride; sym_kOverload; sym_kReintroduce; sym_kStdcall;
   sym_kCdecl; sym_kCppdecl; sym_kPascal; sym_kRegister; sym_kMwpascal; sym_kMessage;
   sym_kDeprecated; sym_kExperimental; sym_kPlatform; sym_kUnimplemented; sym_kCvar; sym_kExport;
   sym_kFar; sym_kNear; sym_kSafecall; sym_kAssembler; sym_kNostackframe; sym_kInterrupt;
   sym_kNoreturn; sym_kIocheck; sym_kLocal; sym_kHardfloat; sym_kSoftfloat; sym_kMs_abi_default;
   sym_kMs_abi_cdecl; sym_kSaveregisters; sym_kSysv_abi_default; sym_kSysv_abi_cdecl;
   sym_kVectorcall; sym_kVarargs; sym_kWinapi; sym_kAlias; sym_kInline; anon_sym_LBRACK;
   aux_sym_ppUsesBlock_token1; aux_sym_ppUsesBlock_token2; aux_sym_ppUsesBlock_token3].

Definition syms_128 : list ts_symbol :=
  [sym_kAnd; sym_kAs; sym_kDiv; sym_kDo; sym_kIn; sym_kIs; sym_kMod; sym_kNot; sym_kOr; sym_kShl;
   sym_kShr; sym_kXor; anon_sym_LBRACK; anon_sym_DOT; sym_kEq; sym_kNeq; sym_kLte; sym_kGte;
   sym_kHat; sym_kAssign; sym_kAssignAdd; sym_kAssignSub; sym_kAssignMul; sym_kAssignDiv].

Definition syms_129 : list ts_symbol :=
  [anon_sym_COMMA; anon_sym_RPAREN].

Definition syms_130 : list ts_symbol :=
  [sym_kGeneric; sym_kOperator; sym_kAnd; sym_kAs; sym_kAsm; sym_kBegin; sym_kClass; sym_kConst;
   sym_kConstructor; sym_kDestructor; sym_kDiv; sym_kDo; sym_kExports; sym_kFunction; sym_kIn;
   sym_kIs; sym_kLabel; sym_kMod; sym_kNot; sym_kOr; sym_kProcedure; sym_kResourcestring;
   sym_kShl; sym_kShr; sym_kThreadvar; sym_kType; sym_kUses; sym_kVar; sym_kXor; anon_sym_LBRACK;
   aux_sym_ppUsesBlock_token1; anon_sym_DOT; sym_kEq; sym_kNeq; sym_kLte; sym_kGte; sym_kHat;
   sym_kAssign; sym_kAssignAdd; sym_kAssignSub; sym_kAssignMul; sym_kAssignDiv].

Definition syms_131 : list ts_symbol :=
  [sym_kGeneric; sym_kOperator; sym_kAnd; sym_kAs; sym_kAsm; sym_kBegin; sym_kClass; sym_kConst;
   sym_kConstructor; sym_kDestructor; sym_kDiv; sym_kExports; sym_kFunction; sym_kIn; sym_kIs;
   sym_kLabel; sym_kMod; sym_kNot; sym_kOr; sym_kProcedure; sym_kResourcestring; sym_kShl;
   sym_kShr; sym_kThreadvar; sym_kType; sym_kUses; sym_kVar; sym_kXor; anon_sym_SEMI;
   anon_sym_LBRACK; aux_sym_ppUsesBlock_token1; anon_sym_DOT; sym_kEq; sym_kNeq; sym_kLte;
   sym_kGte; sym_kHat; sym_kAssign; sym_kAssignAdd; sym_kAssignSub; sym_kAssignMul;
   sym_kAssignDiv].

Definition syms_132 : list ts_symbol :=
  [anon_sym_SEMI; anon_sym_RBRACK].

Definition syms_133 : list ts_symbol :=
  [anon_sym_COMMA; anon_sym_RBRACK].

Definition syms_134 : list ts_symbol :=
  [sym_kOtherwise; sym_kRaiseAt; sym_kAnd; sym_kAs; sym_kDiv; sym_kElse; sym_kEnd; sym_kIn;
   sym_kIs; sym_kMod; sym_kNot; sym_kOr; sym_kShl; sym_kShr; sym_kXor; anon_sym_SEMI;
   anon_sym_LBRACK; anon_sym_DOT; sym_kEq; sym_kNeq; sym_kLte; sym_kGte; sym_kAdd; sym_kSub;
   sym_kMul; sym_kHat].

Definition syms_135 : list ts_symbol :=
  [sym_kGeneric; sym_kOtherwise; sym_kRaiseAt; sym_kOperator; sym_kAnd; sym_kAs; sym_kAsm;
   sym_kBegin; sym_kClass; sym_kConst; sym_kConstructor; sym_kDestructor; sym_kDiv; sym_kElse;
   sym_kEnd; sym_kExports; sym_kFunction; sym_kIn; sym_kIs; sym_kLabel; sym_kMod; sym_kNot;
   sym_kOr; sym_kProcedure; sym_kResourcestring; sym_kShl; sym_kShr; sym_kThreadvar; sym_kType;
   sym_kUses; sym_kVar; sym_kXor; anon_sym_SEMI; anon_sym_LBRACK; aux_sym_ppUsesBlock_token1;
   anon_sym_DOT; sym_kEq; sym_kNeq; sym_kLte; sym_kGte; sym_kAdd; sym_kSub; sym_kMul; sym_kHat].

Definition syms_136 : list ts_symbol :=
  [sym_kRaiseAt; sym_kAnd; sym_kAs; sym_kDiv; sym_kElse; sym_kExcept; sym_kFinally; sym_kIn;
   sym_kIs; sym_kMod; sym_kNot; sym_kOr; sym_kShl; sym_kShr; sym_kXor; anon_sym_SEMI;
   anon_sym_LBRACK; anon_sym_DOT; sym_kEq; sym_kNeq; sym_kLte; sym_kGte; sym_kAdd; sym_kSub;
   sym_kMul; sym_kHat].

Definition syms_137 : list ts_symbol :=
  [sym_kGeneric; sym_kRaiseAt; sym_kOperator; sym_kAnd; sym_kAs; sym_kAsm; sym_kBegin;
   sym_kClass; sym_kConst; sym_kConstructor; sym_kDestructor; sym_kDiv; sym_kElse; sym_kExcept;
   sym_kExports; sym_kFinally; sym_kFunction; sym_kIn; sym_kIs; sym_kLabel; sym_kMod; sym_kNot;
   sym_kOr; sym_kProcedure; sym_kResourcestring; sym_kShl; sym_kShr; sym_kThreadvar; sym_kType;
   sym_kUses; sym_kVar; sym_kXor; anon_sym_SEMI; anon_sym_LBRACK; aux_sym_ppUsesBlock_token1;
   anon_sym_DOT; sym_kEq; sym_kNeq; sym_kLte; sym_kGte; sym_kAdd; sym_kSub; sym_kMul; sym_kHat].

Definition syms_138 : list ts_symbol :=
  [sym_kAnd; sym_kAs; sym_kDiv; sym_kIn; sym_kIs; sym_kMod; sym_kNot; sym_kOr; sym_kShl;
   sym_kShr; sym_kXor; anon_sym_SEMI; anon_sym_COLON; anon_sym_COMMA; anon_sym_LBRACK;
   anon_sym_RBRACK; anon_sym_RPAREN; anon_sym_DOT; sym_kEq; sym_kNeq; sym_kLte; sym_kGte;
   sym_kAdd; sym_kSub; sym_kMul; sym_kHat].

Definition syms_139 : list ts_symbol :=
  [sym_kDefault; sym_kNodefault; sym_kDispId; sym_kPublic; sym_kStatic; sym_kVirtual;
   sym_kAbstract; sym_kDynamic; sym_kOverride; sym_kOverload; sym_kReintroduce; sym_kStdcall;
   sym_kCdecl; sym_kCppdecl; sym_kPascal; sym_kRegister; sym_kMwpascal; sym_kMessage;
   sym_kDeprecated; sym_kExperimental; sym_kPlatform; sym_kUnimplemented; sym_kCvar; sym_kExport;
   sym_kFar; sym_kNear; sym_kSafecall; sym_kAssembler; sym_kNostackframe; sym_kInterrupt;
   sym_kNoreturn; sym_kIocheck; sym_kLocal; sym_kHardfloat; sym_kSoftfloat; sym_kMs_abi_default;
   sym_kMs_abi_cdecl; sym_kSaveregisters; sym_kSysv_abi_default; sym_kSysv_abi_cdecl;
   sym_kVectorcall; sym_kVarargs; sym_kWinapi; sym_kAlias; sym_kInline;
   aux_sym_ppUsesBlock_token1; aux_sym_ppUsesBlock_token2; aux_sym_ppUsesBlock_token3].

Definition syms_140 : list ts_symbol :=
  [sym_identifier; sym_kGeneric; sym_kOperator; sym_kPublished; sym_kPublic; sym_kProtected;
   sym_kPrivate; sym_kStrict; sym_kRequired; sym_kOptional; sym_kCase; sym_kClass; sym_kConst;
   sym_kConstructor; sym_kDestructor; sym_kEnd; sym_kFunction; sym_kProcedure; sym_kProperty;
   sym_kResourcestring; sym_kThreadvar; sym_kType; sym_kVar; anon_sym_LBRACK;
   aux_sym_ppUsesBlock_token1].

Definition syms_141 : list ts_symbol :=
  [sym_identifier; sym_kDefault; sym_kNodefault; sym_kDispId; sym_kOperator; sym_kPublic;
   sym_kStatic; sym_kVirtual; sym_kAbstract; sym_kDynamic; sym_kOverride; sym_kOverload;
   sym_kReintroduce; sym_kStdcall; sym_kCdecl; sym_kCppdecl; sym_kPascal; sym_kRegister;
   sym_kMwpascal; sym_kMessage; sym_kDeprecated; sym_kExperimental; sym_kPlatform;
   sym_kUnimplemented; sym_kCvar; sym_kExport; sym_kFar; sym_kNear; sym_kSafecall;
   sym_kAssembler; sym_kNostackframe; sym_kInterrupt; sym_kNoreturn; sym_kIocheck; sym_kLocal;
   sym_kHardfloat; sym_kSoftfloat; sym_kMs_abi_default; sym_kMs_abi_cdecl; sym_kSaveregisters;
   sym_kSysv_abi_default; sym_kSysv_abi_cdecl; sym_kVectorcall; sym_kVarargs; sym_kWinapi;
   sym_kAlias].

Definition syms_142 : list ts_symbol :=
  [sym_kGeneric; sym_kOperator; sym_kAnd; sym_kAs; sym_kAsm; sym_kBegin; sym_kClass; sym_kConst;
   sym_kConstructor; sym_kDestructor; sym_kDiv; sym_kExports; sym_kFunction; sym_kIn; sym_kIs;
   sym_kLabel; sym_kMod; sym_kNot; sym_kOr; sym_kProcedure; sym_kResourcestring; sym_kShl;
   sym_kShr; sym_kThreadvar; sym_kType; sym_kUses; sym_kVar; sym_kXor; anon_sym_SEMI;
   anon_sym_COLON; anon_sym_COMMA; anon_sym_LBRACK; anon_sym_RBRACK; anon_sym_RPAREN;
   aux_sym_ppUsesBlock_token1; anon_sym_DOT; sym_kEq; sym_kNeq; sym_kLte; sym_kGte; sym_kAdd;
   sym_kSub; sym_kMul; sym_kHat].

Definition syms_143 : list ts_symbol :=
  [sym_kOtherwise; sym_kAnd; sym_kAs; sym_kDiv; sym_kElse; sym_kEnd; sym_kIn; sym_kIs; sym_kMod;
   sym_kNot; sym_kOr; sym_kShl; sym_kShr; sym_kXor; anon_sym_SEMI; anon_sym_LBRACK; anon_sym_DOT;
   sym_kEq; sym_kNeq; sym_kLte; sym_kGte; sym_kAdd; sym_kSub; sym_kMul; sym_kHat].

Definition syms_144 : list ts_symbol :=
  [sym_kAnd; sym_kAs; sym_kDiv; sym_kElse; sym_kExcept; sym_kFinally; sym_kIn; sym_kIs; sym_kMod;
   sym_kNot; sym_kOr; sym_kShl; sym_kShr; sym_kXor; anon_sym_SEMI; anon_sym_LBRACK; anon_sym_DOT;
   sym_kEq; sym_kNeq; sym_kLte; sym_kGte; sym_kAdd; sym_kSub; sym_kMul; sym_kHat].

Definition syms_145 : list ts_symbol :=
  [sym_kGeneric; sym_kOtherwise; sym_kOperator; sym_kAnd; sym_kAs; sym_kAsm; sym_kBegin;
   sym_kClass; sym_kConst; sym_kConstructor; sym_kDestructor; sym_kDiv; sym_kElse; sym_kEnd;
   sym_kExports; sym_kFunction; sym_kIn; sym_kIs; sym_kLabel; sym_kMod; sym_kNot; sym_kOr;
   sym_kProcedure; sym_kResourcestring; sym_kShl; sym_kShr; sym_kThreadvar; sym_kType; sym_kUses;
   sym_kVar; sym_kXor; anon_sym_SEMI; anon_sym_LBRACK; aux_sym_ppUsesBlock_token1; anon_sym_DOT;
   sym_kEq; sym_kNeq; sym_kLte; sym_kGte; sym_kAdd; sym_kSub; sym_kMul; sym_kHat].

Definition syms_146 : list ts_symbol :=
  [sym_kGeneric; sym_kOperator; sym_kAnd; sym_kAs; sym_kAsm; sym_kBegin; sym_kClass; sym_kConst;
   sym_kConstructor; sym_kDestructor; sym_kDiv; sym_kElse; sym_kExcept; sym_kExports;
   sym_kFinally; sym_kFunction; sym_kIn; sym_kIs; sym_kLabel; sym_kMod; sym_kNot; sym_kOr;
   sym_kProcedure; sym_kResourcestring; sym_kShl; sym_kShr; sym_kThreadvar; sym_kType; sym_kUses;
   sym_kVar; sym_kXor; anon_sym_SEMI; anon_sym_LBRACK; aux_sym_ppUsesBlock_token1; anon_sym_DOT;
   sym_kEq; sym_kNeq; sym_kLte; sym_kGte; sym_kAdd; sym_kSub; sym_kMul; sym_kHat].

Definition syms_147 : list ts_symbol :=
  [sym_kGeneric; sym_kOperator; sym_kAnd; sym_kAs; sym_kAsm; sym_kBegin; sym_kClass; sym_kConst;
   sym_kConstructor; sym_kDestructor; sym_kDiv; sym_kExports; sym_kFunction; sym_kIn; sym_kIs;
   sym_kLabel; sym_kMod; sym_kNot; sym_kOf; sym_kOr; sym_kProcedure; sym_kResourcestring;
   sym_kShl; sym_kShr; sym_kThreadvar; sym_kType; sym_kUses; sym_kVar; sym_kXor; anon_sym_SEMI;
   anon_sym_LBRACK; anon_sym_RBRACK; anon_sym_RPAREN; aux_sym_ppUsesBlock_token1; anon_sym_DOT;
   sym_kEq; sym_kNeq; sym_kLte; sym_kGte; sym_kAdd; sym_kSub; sym_kMul; sym_kHat].

Definition syms_148 : list ts_symbol :=
  [anon_sym_LPAREN; anon_sym_DOT; sym_kLt; sym_kGt; sym_kFdiv].

Definition syms_149 : list ts_symbol :=
  [sym_kAnd; sym_kAs; sym_kDiv; sym_kIn; sym_kIs; sym_kMod; sym_kNot; sym_kOr; sym_kShl;
   sym_kShr; sym_kXor; anon_sym_COLON; anon_sym_COMMA; anon_sym_LBRACK; anon_sym_RBRACK;
   anon_sym_DOT_DOT; sym_kEq; sym_kNeq; sym_kLte; sym_kGte; sym_kAdd; sym_kSub; sym_kMul;
   sym_kHat].

Definition syms_150 : list ts_symbol :=
  [anon_sym_LPAREN; aux_sym__literalInt_token1; aux_sym__literalFloat_token1; sym_kAdd; sym_kSub].

Definition syms_151 : list ts_symbol :=
  [sym_ppFragmentExpr; sym__literalStringMultiline; sym_identifier; sym_kSpecialize;
   sym_kFunction; sym_kIf; sym_kInherited; sym_kNil; sym_kNot; sym_kProcedure; sym_kString;
   anon_sym_LBRACK; aux_sym__literalString_token1; anon_sym_POUND; aux_sym__literalInt_token2;
   aux_sym__literalInt_token3; sym_kAt; sym_kTrue; sym_kFalse].

Definition syms_152 : list ts_symbol :=
  [sym_kGeneric; sym_kOperator; sym_kAnd; sym_kAs; sym_kAsm; sym_kBegin; sym_kClass; sym_kConst;
   sym_kConstructor; sym_kDestructor; sym_kDiv; sym_kExports; sym_kFunction; sym_kIn; sym_kIs;
   sym_kLabel; sym_kMod; sym_kNot; sym_kOr; sym_kProcedure; sym_kResourcestring; sym_kShl;
   sym_kShr; sym_kThreadvar; sym_kType; sym_kUses; sym_kVar; sym_kXor; anon_sym_COLON;
   anon_sym_COMMA; anon_sym_LBRACK; anon_sym_RBRACK; anon_sym_DOT_DOT;
   aux_sym_ppUsesBlock_token1; sym_kEq; sym_kNeq; sym_kLte; sym_kGte; sym_kAdd; sym_kSub;
   sym_kMul; sym_kHat].

Definition syms_153 : list ts_symbol :=
  [sym_kIndex; sym_kName; sym_kDelayed; sym_kAnd; sym_kAs; sym_kDiv; sym_kIn; sym_kIs; sym_kMod;
   sym_kNot; sym_kOr; sym_kShl; sym_kShr; sym_kXor; anon_sym_SEMI; anon_sym_LBRACK; anon_sym_DOT;
   sym_kEq; sym_kNeq; sym_kLte; sym_kGte; sym_kAdd; sym_kSub; sym_kMul; sym_kHat].

Definition syms_154 : list ts_symbol :=
  [sym_kAnd; sym_kAs; sym_kDiv; sym_kIn; sym_kIs; sym_kMod; sym_kNot; sym_kOf; sym_kOr; sym_kShl;
   sym_kShr; sym_kXor; anon_sym_SEMI; anon_sym_LBRACK; anon_sym_RBRACK; anon_sym_RPAREN;
   anon_sym_DOT; sym_kEq; sym_kNeq; sym_kLte; sym_kGte; sym_kAdd; sym_kSub; sym_kMul; sym_kHat].

Definition syms_155 : list ts_symbol :=
  [sym_identifier; sym_kDefault; sym_kNodefault; sym_kDispId; sym_kOperator; sym_kPublic;
   sym_kStatic; sym_kVirtual; sym_kAbstract; sym_kDynamic; sym_kOverride; sym_kOverload;
   sym_kReintroduce; sym_kStdcall; sym_kCdecl; sym_kCppdecl; sym_kPascal; sym_kRegister;
   sym_kMwpascal; sym_kMessage; sym_kDeprecated; sym_kExperimental; sym_kPlatform;
   sym_kUnimplemented; sym_kCvar; sym_kExport; sym_kFar; sym_kNear; sym_kSafecall;
   sym_kAssembler; sym_kNostackframe; sym_kInterrupt; sym_kNoreturn; sym_kIocheck; sym_kLocal;
   sym_kHardfloat; sym_kSoftfloat; sym_kMs_abi_default; sym_kMs_abi_cdecl; sym_kSaveregisters;
   sym_kSysv_abi_default; sym_kSysv_abi_cdecl; sym_kVectorcall; sym_kVarargs; sym_kWinapi;
   sym_kAlias; anon_sym_LBRACK].

Definition syms_156 : list ts_symbol :=
  [sym_kIndex; sym_kGeneric; sym_kOperator; sym_kName; sym_kDelayed; sym_kAnd; sym_kAs; sym_kAsm;
   sym_kBegin; sym_kClass; sym_kConst; sym_kConstructor; sym_kDestructor; sym_kDiv; sym_kExports;
   sym_kFunction; sym_kIn; sym_kIs; sym_kLabel; sym_kMod; sym_kNot; sym_kOr; sym_kProcedure;
   sym_kResourcestring; sym_kShl; sym_kShr; sym_kThreadvar; sym_kType; sym_kUses; sym_kVar;
   sym_kXor; anon_sym_SEMI; anon_sym_LBRACK; aux_sym_ppUsesBlock_token1; anon_sym_DOT; sym_kEq;
   sym_kNeq; sym_kLte; sym_kGte; sym_kAdd; sym_kSub; sym_kMul; sym_kHat].

Definition syms_157 : list ts_symbol :=
  [sym_kRaiseAt; sym_kAnd; sym_kAs; sym_kDiv; sym_kExcept; sym_kFinally; sym_kIn; sym_kIs;
   sym_kMod; sym_kNot; sym_kOr; sym_kShl; sym_kShr; sym_kXor; anon_sym_SEMI; anon_sym_LBRACK;
   anon_sym_DOT; sym_kEq; sym_kNeq; sym_kLte; sym_kGte; sym_kAdd; sym_kSub; sym_kMul; sym_kHat].

Definition syms_158 : list ts_symbol :=
  [sym_kIndex; sym_kName; sym_kAnd; sym_kAs; sym_kDiv; sym_kIn; sym_kIs; sym_kMod; sym_kNot;
   sym_kOr; sym_kShl; sym_kShr; sym_kXor; anon_sym_SEMI; anon_sym_COMMA; anon_sym_LBRACK;
   anon_sym_DOT; sym_kEq; sym_kNeq; sym_kLte; sym_kGte; sym_kAdd; sym_kSub; sym_kMul; sym_kHat].

Definition syms_159 : list ts_symbol :=
  [sym_kGeneric; sym_kRaiseAt; sym_kOperator; sym_kAnd; sym_kAs; sym_kAsm; sym_kBegin;
   sym_kClass; sym_kConst; sym_kConstructor; sym_kDestructor; sym_kDiv; sym_kExcept;
   sym_kExports; sym_kFinally; sym_kFunction; sym_kIn; sym_kIs; sym_kLabel; sym_kMod; sym_kNot;
   sym_kOr; sym_kProcedure; sym_kResourcestring; sym_kShl; sym_kShr; sym_kThreadvar; sym_kType;
   sym_kUses; sym_kVar; sym_kXor; anon_sym_SEMI; anon_sym_LBRACK; aux_sym_ppUsesBlock_token1;
   anon_sym_DOT; sym_kEq; sym_kNeq; sym_kLte; sym_kGte; sym_kAdd; sym_kSub; sym_kMul; sym_kHat].

Definition syms_160 : list ts_symbol :=
  [sym_kIndex; sym_kGeneric; sym_kOperator; sym_kName; sym_kAnd; sym_kAs; sym_kAsm; sym_kBegin;
   sym_kClass; sym_kConst; sym_kConstructor; sym_kDestructor; sym_kDiv; sym_kExports;
   sym_kFunction; sym_kIn; sym_kIs; sym_kLabel; sym_kMod; sym_kNot; sym_kOr; sym_kProcedure;
   sym_kResourcestring; sym_kShl; sym_kShr; sym_kThreadvar; sym_kType; sym_kUses; sym_kVar;
   sym_kXor; anon_sym_SEMI; anon_sym_COMMA; anon_sym_LBRACK; aux_sym_ppUsesBlock_token1;
   anon_sym_DOT; sym_kEq; sym_kNeq; sym_kLte; sym_kGte; sym_kAdd; sym_kSub; sym_kMul; sym_kHat].

Definition syms_161 : list ts_symbol :=
  [sym_kRaiseAt; sym_kAnd; sym_kAs; sym_kDiv; sym_kElse; sym_kIn; sym_kIs; sym_kMod; sym_kNot;
   sym_kOr; sym_kShl; sym_kShr; sym_kUntil; sym_kXor; anon_sym_SEMI; anon_sym_LBRACK;
   anon_sym_DOT; sym_kEq; sym_kNeq; sym_kLte; sym_kGte; sym_kAdd; sym_kSub; sym_kMul; sym_kHat].

Definition syms_162 : list ts_symbol :=
  [sym_kDefault; sym_kNodefault; sym_kDispId; sym_kOperator; sym_kPublic; sym_kStatic;
   sym_kVirtual; sym_kAbstract; sym_kDynamic; sym_kOverride; sym_kOverload; sym_kReintroduce;
   sym_kStdcall; sym_kCdecl; sym_kCppdecl; sym_kPascal; sym_kRegister; sym_kMwpascal;
   sym_kMessage; sym_kDeprecated; sym_kExperimental; sym_kPlatform; sym_kUnimplemented;
   sym_kCvar; sym_kExport; sym_kFar; sym_kNear; sym_kSafecall; sym_kAssembler; sym_kNostackframe;
   sym_kInterrupt; sym_kNoreturn; sym_kIocheck; sym_kLocal; sym_kHardfloat; sym_kSoftfloat;
   sym_kMs_abi_default; sym_kMs_abi_cdecl; sym_kSaveregisters; sym_kSysv_abi_default;
   sym_kSysv_abi_cdecl; sym_kVectorcall; sym_kVarargs; sym_kWinapi; sym_kAlias].

Definition syms_163 : list ts_symbol :=
  [sym_kRaiseAt; sym_kAnd; sym_kAs; sym_kDiv; sym_kElse; sym_kEnd; sym_kIn; sym_kIs; sym_kMod;
   sym_kNot; sym_kOr; sym_kShl; sym_kShr; sym_kXor; anon_sym_SEMI; anon_sym_LBRACK; anon_sym_DOT;
   sym_kEq; sym_kNeq; sym_kLte; sym_kGte; sym_kAdd; sym_kSub; sym_kMul; sym_kHat].

Definition syms_164 : list ts_symbol :=
  [sym_kGeneric; sym_kRaiseAt; sym_kOperator; sym_kAnd; sym_kAs; sym_kAsm; sym_kBegin;
   sym_kClass; sym_kConst; sym_kConstructor; sym_kDestructor; sym_kDiv; sym_kElse; sym_kExports;
   sym_kFunction; sym_kIn; sym_kIs; sym_kLabel; sym_kMod; sym_kNot; sym_kOr; sym_kProcedure;
   sym_kResourcestring; sym_kShl; sym_kShr; sym_kThreadvar; sym_kType; sym_kUntil; sym_kUses;
   sym_kVar; sym_kXor; anon_sym_SEMI; anon_sym_LBRACK; aux_sym_ppUsesBlock_token1; anon_sym_DOT;
   sym_kEq; sym_kNeq; sym_kLte; sym_kGte; sym_kAdd; sym_kSub; sym_kMul; sym_kHat].

Definition syms_165 : list ts_symbol :=
  [sym_kGeneric; sym_kRaiseAt; sym_kOperator; sym_kAnd; sym_kAs; sym_kAsm; sym_kBegin;
   sym_kClass; sym_kConst; sym_kConstructor; sym_kDestructor; sym_kDiv; sym_kElse; sym_kEnd;
   sym_kExports; sym_kFunction; sym_kIn; sym_kIs; sym_kLabel; sym_kMod; sym_kNot; sym_kOr;
   sym_kProcedure; sym_kResourcestring; sym_kShl; sym_kShr; sym_kThreadvar; sym_kType; sym_kUses;
   sym_kVar; sym_kXor; anon_sym_SEMI; anon_sym_LBRACK; aux_sym_ppUsesBlock_token1; anon_sym_DOT;
   sym_kEq; sym_kNeq; sym_kLte; sym_kGte; sym_kAdd; sym_kSub; sym_kMul; sym_kHat].

Definition syms_166 : list ts_symbol :=
  [sym_ppFragmentExpr; sym_ppFragmentStmt; sym__literalStringMultiline; sym_identifier;
   sym_kSpecialize; sym_kAsm; sym_kBegin; sym_kCase; sym_kConst; sym_kElse; sym_kEnd;
   sym_kFinalization; sym_kFor; sym_kFunction; sym_kGoto; sym_kIf; sym_kImplementation;
   sym_kInherited; sym_kInitialization; sym_kInterface; sym_kNil; sym_kNot; sym_kProcedure;
   sym_kRaise; sym_kRepeat; sym_kString; sym_kTry; sym_kVar; sym_kWhile; sym_kWith;
   anon_sym_SEMI; anon_sym_LBRACK; aux_sym__literalString_token1; anon_sym_POUND;
   aux_sym__literalInt_token2; aux_sym__literalInt_token3; aux_sym_ppUsesBlock_token1; sym_kAt;
   sym_kTrue; sym_kFalse; sym_labelNumber].

Definition syms_167 : list ts_symbol :=
  [sym_kAbsolute; sym_kAnd; sym_kAs; sym_kDiv; sym_kIn; sym_kIs; sym_kMod; sym_kNot; sym_kOf;
   sym_kOr; sym_kShl; sym_kShr; sym_kXor; anon_sym_SEMI; anon_sym_LBRACK; anon_sym_DOT; sym_kEq;
   sym_kNeq; sym_kLte; sym_kGte; sym_kAdd; sym_kSub; sym_kMul; sym_kHat].

Definition syms_168 : list ts_symbol :=
  [sym_kGeneric; sym_kOperator; sym_kAnd; sym_kAs; sym_kAsm; sym_kBegin; sym_kClass; sym_kConst;
   sym_kConstructor; sym_kDestructor; sym_kDiv; sym_kExports; sym_kFunction; sym_kIn; sym_kIs;
   sym_kLabel; sym_kMod; sym_kNot; sym_kOf; sym_kOr; sym_kProcedure; sym_kResourcestring;
   sym_kShl; sym_kShr; sym_kThreadvar; sym_kType; sym_kUses; sym_kVar; sym_kXor; anon_sym_LBRACK;
   aux_sym_ppUsesBlock_token1; aux_sym_ppUsesBlock_token2; aux_sym_ppUsesBlock_token3;
   anon_sym_DOT; sym_kEq; sym_kNeq; sym_kLte; sym_kGte; sym_kAdd; sym_kSub; sym_kMul; sym_kHat].

Definition syms_169 : list ts_symbol :=
  [sym_kAnd; sym_kAs; sym_kDiv; sym_kExcept; sym_kFinally; sym_kIn; sym_kIs; sym_kMod; sym_kNot;
   sym_kOr; sym_kShl; sym_kShr; sym_kXor; anon_sym_SEMI; anon_sym_LBRACK; anon_sym_DOT; sym_kEq;
   sym_kNeq; sym_kLte; sym_kGte; sym_kAdd; sym_kSub; sym_kMul; sym_kHat].

Definition syms_170 : list ts_symbol :=
  [sym_kAnd; sym_kAs; sym_kDiv; sym_kIn; sym_kIs; sym_kMod; sym_kNot; sym_kOf; sym_kOr; sym_kShl;
   sym_kShr; sym_kXor; anon_sym_LBRACK; aux_sym_ppUsesBlock_token2; aux_sym_ppUsesBlock_token3;
   anon_sym_DOT; sym_kEq; sym_kNeq; sym_kLte; sym_kGte; sym_kAdd; sym_kSub; sym_kMul; sym_kHat].

Definition syms_171 : list ts_symbol :=
  [sym_kGeneric; sym_kOperator; sym_kAnd; sym_kAs; sym_kAsm; sym_kBegin; sym_kClass; sym_kConst;
   sym_kConstructor; sym_kDestructor; sym_kDiv; sym_kElse; sym_kEnd; sym_kExports; sym_kFunction;
   sym_kIn; sym_kIs; sym_kLabel; sym_kMod; sym_kNot; sym_kOr; sym_kProcedure;
   sym_kResourcestring; sym_kShl; sym_kShr; sym_kThreadvar; sym_kType; sym_kUses; sym_kVar;
   sym_kXor; anon_sym_SEMI; anon_sym_LBRACK; aux_sym_ppUsesBlock_token1; anon_sym_DOT; sym_kEq;
   sym_kNeq; sym_kLte; sym_kGte; sym_kAdd; sym_kSub; sym_kMul; sym_kHat].

Definition syms_172 : list ts_symbol :=
  [sym_ppFragmentExpr; sym_ppFragmentStmt; sym__literalStringMultiline; sym_identifier;
   sym_kSpecialize; sym_kAsm; sym_kBegin; sym_kCase; sym_kConst; sym_kEnd; sym_kFinalization;
   sym_kFor; sym_kFunction; sym_kGoto; sym_kIf; sym_kImplementation; sym_kInherited;
   sym_kInitialization; sym_kInterface; sym_kNil; sym_kNot; sym_kProcedure; sym_kRaise;
   sym_kRepeat; sym_kString; sym_kTry; sym_kVar; sym_kWhile; sym_kWith; anon_sym_SEMI;
   anon_sym_LBRACK; aux_sym__literalString_token1; anon_sym_POUND; aux_sym__literalInt_token2;
   aux_sym__literalInt_token3; aux_sym_ppUsesBlock_token1; sym_kAt; sym_kTrue; sym_kFalse;
   sym_labelNumber].

Definition syms_173 : list ts_symbol :=
  [sym_kDefault; sym_kNodefault; sym_kDispId; sym_kPublic; sym_kStatic; sym_kVirtual;
   sym_kAbstract; sym_kDynamic; sym_kOverride; sym_kOverload; sym_kReintroduce; sym_kStdcall;
   sym_kCdecl; sym_kCppdecl; sym_kPascal; sym_kRegister; sym_kMwpascal; sym_kExternal;
   sym_kMessage; sym_kDeprecated; sym_kExperimental; sym_kPlatform; sym_kUnimplemented;
   sym_kCvar; sym_kExport; sym_kFar; sym_kNear; sym_kSafecall; sym_kAssembler; sym_kNostackframe;
   sym_kInterrupt; sym_kNoreturn; sym_kIocheck; sym_kLocal; sym_kHardfloat; sym_kSoftfloat;
   sym_kMs_abi_default; sym_kMs_abi_cdecl; sym_kSaveregisters; sym_kSysv_abi_default;
   sym_kSysv_abi_cdecl; sym_kVectorcall; sym_kVarargs; sym_kWinapi; sym_kAlias; sym_kInline].

Definition syms_174 : list ts_symbol :=
  [sym_kRaiseAt; sym_kAnd; sym_kAs; sym_kDiv; sym_kElse; sym_kIn; sym_kIs; sym_kMod; sym_kNot;
   sym_kOr; sym_kShl; sym_kShr; sym_kXor; anon_sym_SEMI; anon_sym_LBRACK; anon_sym_DOT; sym_kEq;
   sym_kNeq; sym_kLte; sym_kGte; sym_kAdd; sym_kSub; sym_kMul; sym_kHat].

Definition syms_175 : list ts_symbol :=
  [sym_kAnd; sym_kAs; sym_kDiv; sym_kElse; sym_kEnd; sym_kIn; sym_kIs; sym_kMod; sym_kNot;
   sym_kOr; sym_kShl; sym_kShr; sym_kXor; anon_sym_SEMI; anon_sym_LBRACK; anon_sym_DOT; sym_kEq;
   sym_kNeq; sym_kLte; sym_kGte; sym_kAdd; sym_kSub; sym_kMul; sym_kHat].

Definition syms_176 : list ts_symbol :=
  [sym_kRaiseAt; sym_kAnd; sym_kAs; sym_kDiv; sym_kEnd; sym_kIn; sym_kIs; sym_kMod; sym_kNot;
   sym_kOr; sym_kShl; sym_kShr; sym_kXor; anon_sym_SEMI; anon_sym_LBRACK; anon_sym_DOT; sym_kEq;
   sym_kNeq; sym_kLte; sym_kGte; sym_kAdd; sym_kSub; sym_kMul; sym_kHat].

Definition syms_177 : list ts_symbol :=
  [sym_kGeneric; sym_kRaiseAt; sym_kOperator; sym_kAnd; sym_kAs; sym_kAsm; sym_kBegin;
   sym_kClass; sym_kConst; sym_kConstructor; sym_kDestructor; sym_kDiv; sym_kEnd; sym_kExports;
   sym_kFunction; sym_kIn; sym_kIs; sym_kLabel; sym_kMod; sym_kNot; sym_kOr; sym_kProcedure;
   sym_kResourcestring; sym_kShl; sym_kShr; sym_kThreadvar; sym_kType; sym_kUses; sym_kVar;
   sym_kXor; anon_sym_SEMI; anon_sym_LBRACK; aux_sym_ppUsesBlock_token1; anon_sym_DOT; sym_kEq;
   sym_kNeq; sym_kLte; sym_kGte; sym_kAdd; sym_kSub; sym_kMul; sym_kHat].

Definition syms_178 : list ts_symbol :=
  [sym_kGeneric; sym_kRaiseAt; sym_kOperator; sym_kAnd; sym_kAs; sym_kAsm; sym_kBegin;
   sym_kClass; sym_kConst; sym_kConstructor; sym_kDestructor; sym_kDiv; sym_kElse; sym_kExports;
   sym_kFunction; sym_kIn; sym_kIs; sym_kLabel; sym_kMod; sym_kNot; sym_kOr; sym_kProcedure;
   sym_kResourcestring; sym_kShl; sym_kShr; sym_kThreadvar; sym_kType; sym_kUses; sym_kVar;
   sym_kXor; anon_sym_SEMI; anon_sym_LBRACK; aux_sym_ppUsesBlock_token1; anon_sym_DOT; sym_kEq;
   sym_kNeq; sym_kLte; sym_kGte; sym_kAdd; sym_kSub; sym_kMul; sym_kHat].

Definition syms_179 : list ts_symbol :=
  [sym_kRaiseAt; sym_kAnd; sym_kAs; sym_kDiv; sym_kIn; sym_kIs; sym_kMod; sym_kNot; sym_kOr;
   sym_kShl; sym_kShr; sym_kUntil; sym_kXor; anon_sym_SEMI; anon_sym_LBRACK; anon_sym_DOT;
   sym_kEq; sym_kNeq; sym_kLte; sym_kGte; sym_kAdd; sym_kSub; sym_kMul; sym_kHat].

Definition syms_180 : list ts_symbol :=
  [sym_kAbsolute; sym_kGeneric; sym_kOperator; sym_kAnd; sym_kAs; sym_kAsm; sym_kBegin;
   sym_kClass; sym_kConst; sym_kConstructor; sym_kDestructor; sym_kDiv; sym_kExports;
   sym_kFunction; sym_kIn; sym_kIs; sym_kLabel; sym_kMod; sym_kNot; sym_kOf; sym_kOr;
   sym_kProcedure; sym_kResourcestring; sym_kShl; sym_kShr; sym_kThreadvar; sym_kType; sym_kUses;
   sym_kVar; sym_kXor; anon_sym_SEMI; anon_sym_LBRACK; aux_sym_ppUsesBlock_token1; anon_sym_DOT;
   sym_kEq; sym_kNeq; sym_kLte; sym_kGte; sym_kAdd; sym_kSub; sym_kMul; sym_kHat].

Definition syms_181 : list ts_symbol :=
  [sym_kGeneric; sym_kOperator; sym_kAnd; sym_kAs; sym_kAsm; sym_kBegin; sym_kClass; sym_kConst;
   sym_kConstructor; sym_kDestructor; sym_kDiv; sym_kElse; sym_kExports; sym_kFunction; sym_kIn;
   sym_kIs; sym_kLabel; sym_kMod; sym_kNot; sym_kOr; sym_kProcedure; sym_kResourcestring;
   sym_kShl; sym_kShr; sym_kThreadvar; sym_kType; sym_kUntil; sym_kUses; sym_kVar; sym_kXor;
   anon_sym_SEMI; anon_sym_LBRACK; aux_sym_ppUsesBlock_token1; anon_sym_DOT; sym_kEq; sym_kNeq;
   sym_kLte; sym_kGte; sym_kAdd; sym_kSub; sym_kMul; sym_kHat].

Definition syms_182 : list ts_symbol :=
  [sym_kAnd; sym_kAs; sym_kDiv; sym_kElse; sym_kIn; sym_kIs; sym_kMod; sym_kNot; sym_kOr;
   sym_kShl; sym_kShr; sym_kUntil; sym_kXor; anon_sym_SEMI; anon_sym_LBRACK; anon_sym_DOT;
   sym_kEq; sym_kNeq; sym_kLte; sym_kGte; sym_kAdd; sym_kSub; sym_kMul; sym_kHat].

Definition syms_183 : list ts_symbol :=
  [sym_kGeneric; sym_kRaiseAt; sym_kOperator; sym_kAnd; sym_kAs; sym_kAsm; sym_kBegin;
   sym_kClass; sym_kConst; sym_kConstructor; sym_kDestructor; sym_kDiv; sym_kExports;
   sym_kFunction; sym_kIn; sym_kIs; sym_kLabel; sym_kMod; sym_kNot; sym_kOr; sym_kProcedure;
   sym_kResourcestring; sym_kShl; sym_kShr; sym_kThreadvar; sym_kType; sym_kUntil; sym_kUses;
   sym_kVar; sym_kXor; anon_sym_SEMI; anon_sym_LBRACK; aux_sym_ppUsesBlock_token1; anon_sym_DOT;
   sym_kEq; sym_kNeq; sym_kLte; sym_kGte; sym_kAdd; sym_kSub; sym_kMul; sym_kHat].

Definition syms_184 : list ts_symbol :=
  [sym_kAnd; sym_kAs; sym_kDiv; sym_kIn; sym_kIs; sym_kMod; sym_kNot; sym_kOr; sym_kShl;
   sym_kShr; sym_kXor; anon_sym_SEMI; anon_sym_LBRACK; aux_sym_ppUsesBlock_token2;
   aux_sym_ppUsesBlock_token3; anon_sym_DOT; sym_kEq; sym_kNeq; sym_kLte; sym_kGte; sym_kAdd;
   sym_kSub; sym_kMul; sym_kHat].

Definition syms_185 : list ts_symbol :=
  [sym_kGeneric; sym_kOperator; sym_kAnd; sym_kAs; sym_kAsm; sym_kBegin; sym_kClass; sym_kConst;
   sym_kConstructor; sym_kDestructor; sym_kDiv; sym_kExcept; sym_kExports; sym_kFinally;
   sym_kFunction; sym_kIn; sym_kIs; sym_kLabel; sym_kMod; sym_kNot; sym_kOr; sym_kProcedure;
   sym_kResourcestring; sym_kShl; sym_kShr; sym_kThreadvar; sym_kType; sym_kUses; sym_kVar;
   sym_kXor; anon_sym_SEMI; anon_sym_LBRACK; aux_sym_ppUsesBlock_token1; anon_sym_DOT; sym_kEq;
   sym_kNeq; sym_kLte; sym_kGte; sym_kAdd; sym_kSub; sym_kMul; sym_kHat].

Definition syms_186 : list ts_symbol :=
  [sym_identifier; sym_labelNumber].

Definition syms_187 : list ts_symbol :=
  [sym_label; aux_sym_labeledStatement_repeat1].

Definition syms_188 : list ts_symbol :=
  [sym_ppFragmentExpr; sym__literalStringMultiline; sym_kSpecialize; sym_kAsm; sym_kBegin;
   sym_kCase; sym_kConst; sym_kElse; sym_kEnd; sym_kFinalization; sym_kFor; sym_kFunction;
   sym_kGoto; sym_kIf; sym_kImplementation; sym_kInherited; sym_kInitialization; sym_kInterface;
   sym_kNil; sym_kNot; sym_kProcedure; sym_kRaise; sym_kRepeat; sym_kString; sym_kTry; sym_kVar;
   sym_kWhile; sym_kWith; anon_sym_SEMI; anon_sym_LBRACK; aux_sym__literalString_token1;
   anon_sym_POUND; aux_sym__literalInt_token2; aux_sym__literalInt_token3; sym_kAt; sym_kTrue;
   sym_kFalse].

Definition syms_189 : list ts_symbol :=
  [sym_kGeneric; sym_kOperator; sym_kAnd; sym_kAs; sym_kAsm; sym_kBegin; sym_kClass; sym_kConst;
   sym_kConstructor; sym_kDestructor; sym_kDiv; sym_kExports; sym_kFunction; sym_kIn; sym_kIs;
   sym_kLabel; sym_kMod; sym_kNot; sym_kOr; sym_kProcedure; sym_kResourcestring; sym_kShl;
   sym_kShr; sym_kThreadvar; sym_kType; sym_kUses; sym_kVar; sym_kXor; anon_sym_SEMI;
   anon_sym_LBRACK; aux_sym_ppUsesBlock_token1; aux_sym_ppUsesBlock_token2;
   aux_sym_ppUsesBlock_token3; anon_sym_DOT; sym_kEq; sym_kNeq; sym_kLte; sym_kGte; sym_kAdd;
   sym_kSub; sym_kMul; sym_kHat].

Definition syms_190 : list ts_symbol :=
  [sym__literalStringMultiline; sym_kGeneric; sym_kOperator; sym_kAnd; sym_kAs; sym_kAsm;
   sym_kBegin; sym_kClass; sym_kConst; sym_kConstructor; sym_kDestructor; sym_kDiv; sym_kExports;
   sym_kFunction; sym_kIn; sym_kIs; sym_kLabel; sym_kMod; sym_kNot; sym_kOr; sym_kProcedure;
   sym_kResourcestring; sym_kShl; sym_kShr; sym_kThreadvar; sym_kType; sym_kUses; sym_kVar;
   sym_kXor; anon_sym_LBRACK; aux_sym__literalString_token1; anon_sym_POUND;
   aux_sym_ppUsesBlock_token1; anon_sym_DOT; sym_kEq; sym_kNeq; sym_kLte; sym_kGte; sym_kAdd;
   sym_kSub; sym_kMul; sym_kHat].

Definition syms_191 : list ts_symbol :=
  [sym_kAnd; sym_kAs; sym_kDiv; sym_kEnd; sym_kIn; sym_kIs; sym_kMod; sym_kNot; sym_kOr;
   sym_kShl; sym_kShr; sym_kXor; anon_sym_SEMI; anon_sym_LBRACK; anon_sym_DOT; sym_kEq; sym_kNeq;
   sym_kLte; sym_kGte; sym_kAdd; sym_kSub; sym_kMul; sym_kHat].

Definition syms_192 : list ts_symbol :=
  [sym_ppFragmentExpr; sym_ppFragmentStmt; sym__literalStringMultiline; sym_identifier;
   sym_kSpecialize; sym_kAsm; sym_kBegin; sym_kCase; sym_kConst; sym_kFor; sym_kFunction;
   sym_kGoto; sym_kIf; sym_kInherited; sym_kNil; sym_kNot; sym_kProcedure; sym_kRaise;
   sym_kRepeat; sym_kString; sym_kTry; sym_kVar; sym_kWhile; sym_kWith; anon_sym_SEMI;
   anon_sym_LBRACK; aux_sym__literalString_token1; anon_sym_POUND; aux_sym__literalInt_token2;
   aux_sym__literalInt_token3; aux_sym_ppUsesBlock_token1; sym_kAt; sym_kTrue; sym_kFalse;
   sym_labelNumber].

Definition syms_193 : list ts_symbol :=
  [sym_kAnd; sym_kAs; sym_kDiv; sym_kElse; sym_kIn; sym_kIs; sym_kMod; sym_kNot; sym_kOr;
   sym_kShl; sym_kShr; sym_kXor; anon_sym_SEMI; anon_sym_LBRACK; anon_sym_DOT; sym_kEq; sym_kNeq;
   sym_kLte; sym_kGte; sym_kAdd; sym_kSub; sym_kMul; sym_kHat].

Definition syms_194 : list ts_symbol :=
  [sym_kAbsolute; sym_kGeneric; sym_kOperator; sym_kAnd; sym_kAs; sym_kAsm; sym_kBegin;
   sym_kClass; sym_kConst; sym_kConstructor; sym_kDestructor; sym_kDiv; sym_kExports;
   sym_kFunction; sym_kIn; sym_kIs; sym_kLabel; sym_kMod; sym_kNot; sym_kOr; sym_kProcedure;
   sym_kResourcestring; sym_kShl; sym_kShr; sym_kThreadvar; sym_kType; sym_kUses; sym_kVar;
   sym_kXor; anon_sym_SEMI; anon_sym_LBRACK; aux_sym_ppUsesBlock_token1; anon_sym_DOT; sym_kEq;
   sym_kNeq; sym_kLte; sym_kGte; sym_kAdd; sym_kSub; sym_kMul; sym_kHat].

Definition syms_195 : list ts_symbol :=
  [sym_kGeneric; sym_kOperator; sym_kAnd; sym_kAs; sym_kAsm; sym_kBegin; sym_kClass; sym_kConst;
   sym_kConstructor; sym_kDestructor; sym_kDiv; sym_kDownto; sym_kExports; sym_kFunction;
   sym_kIn; sym_kIs; sym_kLabel; sym_kMod; sym_kNot; sym_kOr; sym_kProcedure;
   sym_kResourcestring; sym_kShl; sym_kShr; sym_kThreadvar; sym_kTo; sym_kType; sym_kUses;
   sym_kVar; sym_kXor; anon_sym_LBRACK; aux_sym_ppUsesBlock_token1; anon_sym_DOT; sym_kEq;
   sym_kNeq; sym_kLte; sym_kGte; sym_kAdd; sym_kSub; sym_kMul; sym_kHat].

Definition syms_196 : list ts_symbol :=
  [sym_kRaiseAt; sym_kAnd; sym_kAs; sym_kDiv; sym_kIn; sym_kIs; sym_kMod; sym_kNot; sym_kOr;
   sym_kShl; sym_kShr; sym_kXor; anon_sym_SEMI; anon_sym_LBRACK; anon_sym_DOT; sym_kEq; sym_kNeq;
   sym_kLte; sym_kGte; sym_kAdd; sym_kSub; sym_kMul; sym_kHat].

Definition syms_197 : list ts_symbol :=
  [sym_kAbsolute; sym_kAnd; sym_kAs; sym_kDiv; sym_kIn; sym_kIs; sym_kMod; sym_kNot; sym_kOr;
   sym_kShl; sym_kShr; sym_kXor; anon_sym_SEMI; anon_sym_LBRACK; anon_sym_DOT; sym_kEq; sym_kNeq;
   sym_kLte; sym_kGte; sym_kAdd; sym_kSub; sym_kMul; sym_kHat].

Definition syms_198 : list ts_symbol :=
  [sym_kAnd; sym_kAs; sym_kDiv; sym_kDownto; sym_kIn; sym_kIs; sym_kMod; sym_kNot; sym_kOr;
   sym_kShl; sym_kShr; sym_kTo; sym_kXor; anon_sym_LBRACK; anon_sym_DOT; sym_kEq; sym_kNeq;
   sym_kLte; sym_kGte; sym_kAdd; sym_kSub; sym_kMul; sym_kHat].

Definition syms_199 : list ts_symbol :=
  [sym_ppFragmentExpr; sym_ppFragmentStmt; sym__literalStringMultiline; sym_kSpecialize;
   sym_kAsm; sym_kBegin; sym_kCase; sym_kConst; sym_kFor; sym_kFunction; sym_kGoto; sym_kIf;
   sym_kInherited; sym_kNil; sym_kNot; sym_kProcedure; sym_kRaise; sym_kRepeat; sym_kString;
   sym_kTry; sym_kVar; sym_kWhile; sym_kWith; anon_sym_SEMI; anon_sym_LBRACK;
   aux_sym__literalString_token1; anon_sym_POUND; aux_sym__literalInt_token2;
   aux_sym__literalInt_token3; aux_sym_ppUsesBlock_token1; sym_kAt; sym_kTrue; sym_kFalse].

Definition syms_200 : list ts_symbol :=
  [sym_kGeneric; sym_kOperator; sym_kAnd; sym_kAs; sym_kAsm; sym_kBegin; sym_kClass; sym_kConst;
   sym_kConstructor; sym_kDestructor; sym_kDiv; sym_kExports; sym_kFunction; sym_kIn; sym_kIs;
   sym_kLabel; sym_kMod; sym_kNot; sym_kOr; sym_kProcedure; sym_kResourcestring; sym_kShl;
   sym_kShr; sym_kThreadvar; sym_kType; sym_kUntil; sym_kUses; sym_kVar; sym_kXor; anon_sym_SEMI;
   anon_sym_LBRACK; aux_sym_ppUsesBlock_token1; anon_sym_DOT; sym_kEq; sym_kNeq; sym_kLte;
   sym_kGte; sym_kAdd; sym_kSub; sym_kMul; sym_kHat].

Definition syms_201 : list ts_symbol :=
  [sym_kDefault; sym_kNodefault; sym_kDispId; sym_kPublic; sym_kStatic; sym_kVirtual;
   sym_kAbstract; sym_kDynamic; sym_kOverride; sym_kOverload; sym_kReintroduce; sym_kStdcall;
   sym_kCdecl; sym_kCppdecl; sym_kPascal; sym_kRegister; sym_kMwpascal; sym_kMessage;
   sym_kDeprecated; sym_kExperimental; sym_kPlatform; sym_kUnimplemented; sym_kCvar; sym_kExport;
   sym_kFar; sym_kNear; sym_kSafecall; sym_kAssembler; sym_kNostackframe; sym_kInterrupt;
   sym_kNoreturn; sym_kIocheck; sym_kLocal; sym_kHardfloat; sym_kSoftfloat; sym_kMs_abi_default;
   sym_kMs_abi_cdecl; sym_kSaveregisters; sym_kSysv_abi_default; sym_kSysv_abi_cdecl;
   sym_kVectorcall; sym_kVarargs; sym_kWinapi; sym_kAlias; sym_kInline].

Definition syms_202 : list ts_symbol :=
  [sym_kGeneric; sym_kRaiseAt; sym_kOperator; sym_kAnd; sym_kAs; sym_kAsm; sym_kBegin;
   sym_kClass; sym_kConst; sym_kConstructor; sym_kDestructor; sym_kDiv; sym_kExports;
   sym_kFunction; sym_kIn; sym_kIs; sym_kLabel; sym_kMod; sym_kNot; sym_kOr; sym_kProcedure;
   sym_kResourcestring; sym_kShl; sym_kShr; sym_kThreadvar; sym_kType; sym_kUses; sym_kVar;
   sym_kXor; anon_sym_SEMI; anon_sym_LBRACK; aux_sym_ppUsesBlock_token1; anon_sym_DOT; sym_kEq;
   sym_kNeq; sym_kLte; sym_kGte; sym_kAdd; sym_kSub; sym_kMul; sym_kHat].

Definition syms_203 : list ts_symbol :=
  [sym_kGeneric; sym_kOperator; sym_kAnd; sym_kAs; sym_kAsm; sym_kBegin; sym_kClass; sym_kConst;
   sym_kConstructor; sym_kDestructor; sym_kDiv; sym_kDo; sym_kExports; sym_kFunction; sym_kIn;
   sym_kIs; sym_kLabel; sym_kMod; sym_kNot; sym_kOr; sym_kProcedure; sym_kResourcestring;
   sym_kShl; sym_kShr; sym_kThreadvar; sym_kType; sym_kUses; sym_kVar; sym_kXor; anon_sym_COMMA;
   anon_sym_LBRACK; aux_sym_ppUsesBlock_token1; anon_sym_DOT; sym_kEq; sym_kNeq; sym_kLte;
   sym_kGte; sym_kAdd; sym_kSub; sym_kMul; sym_kHat].

Definition syms_204 : list ts_symbol :=
  [sym_kAnd; sym_kAs; sym_kDiv; sym_kDo; sym_kIn; sym_kIs; sym_kMod; sym_kNot; sym_kOr; sym_kShl;
   sym_kShr; sym_kXor; anon_sym_COMMA; anon_sym_LBRACK; anon_sym_DOT; sym_kEq; sym_kNeq;
   sym_kLte; sym_kGte; sym_kAdd; sym_kSub; sym_kMul; sym_kHat].

Definition syms_205 : list ts_symbol :=
  [sym_kDelayed; sym_kAnd; sym_kAs; sym_kDiv; sym_kIn; sym_kIs; sym_kMod; sym_kNot; sym_kOr;
   sym_kShl; sym_kShr; sym_kXor; anon_sym_SEMI; anon_sym_LBRACK; anon_sym_DOT; sym_kEq; sym_kNeq;
   sym_kLte; sym_kGte; sym_kAdd; sym_kSub; sym_kMul; sym_kHat].

Definition syms_206 : list ts_symbol :=
  [sym_kGeneric; sym_kOperator; sym_kAnd; sym_kAs; sym_kAsm; sym_kBegin; sym_kClass; sym_kConst;
   sym_kConstructor; sym_kDestructor; sym_kDiv; sym_kEnd; sym_kExports; sym_kFunction; sym_kIn;
   sym_kIs; sym_kLabel; sym_kMod; sym_kNot; sym_kOr; sym_kProcedure; sym_kResourcestring;
   sym_kShl; sym_kShr; sym_kThreadvar; sym_kType; sym_kUses; sym_kVar; sym_kXor; anon_sym_SEMI;
   anon_sym_LBRACK; aux_sym_ppUsesBlock_token1; anon_sym_DOT; sym_kEq; sym_kNeq; sym_kLte;
   sym_kGte; sym_kAdd; sym_kSub; sym_kMul; sym_kHat].

Definition syms_207 : list ts_symbol :=
  [sym_kGeneric; sym_kOperator; sym_kAnd; sym_kAs; sym_kAsm; sym_kBegin; sym_kClass; sym_kConst;
   sym_kConstructor; sym_kDestructor; sym_kDiv; sym_kElse; sym_kExports; sym_kFunction; sym_kIn;
   sym_kIs; sym_kLabel; sym_kMod; sym_kNot; sym_kOr; sym_kProcedure; sym_kResourcestring;
   sym_kShl; sym_kShr; sym_kThreadvar; sym_kType; sym_kUses; sym_kVar; sym_kXor; anon_sym_SEMI;
   anon_sym_LBRACK; aux_sym_ppUsesBlock_token1; anon_sym_DOT; sym_kEq; sym_kNeq; sym_kLte;
   sym_kGte; sym_kAdd; sym_kSub; sym_kMul; sym_kHat].

Definition syms_208 : list ts_symbol :=
  [sym_kGeneric; sym_kOperator; sym_kDelayed; sym_kAnd; sym_kAs; sym_kAsm; sym_kBegin;
   sym_kClass; sym_kConst; sym_kConstructor; sym_kDestructor; sym_kDiv; sym_kExports;
   sym_kFunction; sym_kIn; sym_kIs; sym_kLabel; sym_kMod; sym_kNot; sym_kOr; sym_kProcedure;
   sym_kResourcestring; sym_kShl; sym_kShr; sym_kThreadvar; sym_kType; sym_kUses; sym_kVar;
   sym_kXor; anon_sym_SEMI; anon_sym_LBRACK; aux_sym_ppUsesBlock_token1; anon_sym_DOT; sym_kEq;
   sym_kNeq; sym_kLte; sym_kGte; sym_kAdd; sym_kSub; sym_kMul; sym_kHat].

Definition syms_209 : list ts_symbol :=
  [sym_ppFragmentExpr; sym__literalStringMultiline; sym_kSpecialize; sym_kAsm; sym_kBegin;
   sym_kCase; sym_kConst; sym_kEnd; sym_kFinalization; sym_kFor; sym_kFunction; sym_kGoto;
   sym_kIf; sym_kImplementation; sym_kInherited; sym_kInitialization; sym_kInterface; sym_kNil;
   sym_kNot; sym_kProcedure; sym_kRaise; sym_kRepeat; sym_kString; sym_kTry; sym_kVar;
   sym_kWhile; sym_kWith; anon_sym_SEMI; anon_sym_LBRACK; aux_sym__literalString_token1;
   anon_sym_POUND; aux_sym__literalInt_token2; aux_sym__literalInt_token3; sym_kAt; sym_kTrue;
   sym_kFalse].

Definition syms_210 : list ts_symbol :=
  [aux_sym__definitions; sym__definition; sym_defProc; sym_declProcFwd; sym_declUses;
   sym_ppBlock; sym_declExports; sym_declTypes; sym_declVars; sym_declConsts; sym_declLabels].

Definition syms_211 : list ts_symbol :=
  [sym_kAnd; sym_kAs; sym_kDiv; sym_kIn; sym_kIs; sym_kMod; sym_kNot; sym_kOr; sym_kShl;
   sym_kShr; sym_kUntil; sym_kXor; anon_sym_SEMI; anon_sym_LBRACK; anon_sym_DOT; sym_kEq;
   sym_kNeq; sym_kLte; sym_kGte; sym_kAdd; sym_kSub; sym_kMul; sym_kHat].

Definition syms_212 : list ts_symbol :=
  [sym_ppFragmentExpr; sym_ppFragmentStmt; sym__literalStringMultiline; sym_identifier;
   sym_kSpecialize; sym_kAsm; sym_kBegin; sym_kCase; sym_kConst; sym_kElse; sym_kFor;
   sym_kFunction; sym_kGoto; sym_kIf; sym_kInherited; sym_kNil; sym_kNot; sym_kProcedure;
   sym_kRaise; sym_kRepeat; sym_kString; sym_kTry; sym_kVar; sym_kWhile; sym_kWith;
   anon_sym_SEMI; anon_sym_COMMA; anon_sym_LBRACK; aux_sym__literalString_token1; anon_sym_POUND;
   aux_sym__literalInt_token2; aux_sym__literalInt_token3; aux_sym_ppUsesBlock_token1;
   aux_sym_ppUsesBlock_token2; aux_sym_ppUsesBlock_token3; sym_kAt; sym_kTrue; sym_kFalse;
   sym_labelNumber].

Definition syms_213 : list ts_symbol :=
  [sym_kGeneric; sym_kOperator; sym_kAnd; sym_kAs; sym_kAsm; sym_kBegin; sym_kClass; sym_kConst;
   sym_kConstructor; sym_kDestructor; sym_kDiv; sym_kExports; sym_kFunction; sym_kIn; sym_kIs;
   sym_kLabel; sym_kMod; sym_kNot; sym_kOr; sym_kProcedure; sym_kResourcestring; sym_kShl;
   sym_kShr; sym_kThreadvar; sym_kType; sym_kUses; sym_kVar; sym_kXor; anon_sym_LBRACK;
   aux_sym_ppUsesBlock_token1; anon_sym_DOT; sym_kEq; sym_kNeq; sym_kLte; sym_kGte; sym_kAdd;
   sym_kSub; sym_kMul].

Definition syms_214 : list ts_symbol :=
  [sym_kGeneric; sym_kOperator; sym_kAnd; sym_kAs; sym_kAsm; sym_kBegin; sym_kClass; sym_kConst;
   sym_kConstructor; sym_kDestructor; sym_kDiv; sym_kExports; sym_kFunction; sym_kIn; sym_kIs;
   sym_kLabel; sym_kMod; sym_kNot; sym_kOr; sym_kProcedure; sym_kResourcestring; sym_kShl;
   sym_kShr; sym_kThreadvar; sym_kType; sym_kUses; sym_kVar; sym_kXor;
   aux_sym_ppUsesBlock_token1; sym_kEq; sym_kNeq; sym_kLte; sym_kGte; sym_kAdd; sym_kSub;
   sym_kMul; sym_kHat].

Definition syms_215 : list ts_symbol :=
  [sym_kGeneric; sym_kOperator; sym_kAsm; sym_kBegin; sym_kClass; sym_kConst; sym_kConstructor;
   sym_kDestructor; sym_kExports; sym_kFunction; sym_kIn; sym_kIs; sym_kLabel; sym_kNot;
   sym_kProcedure; sym_kResourcestring; sym_kThreadvar; sym_kType; sym_kUses; sym_kVar;
   anon_sym_LBRACK; aux_sym_ppUsesBlock_token1; anon_sym_DOT; sym_kEq; sym_kNeq; sym_kLte;
   sym_kGte].

Definition syms_216 : list ts_symbol :=
  [sym_kAnd; sym_kAs; sym_kDiv; sym_kIn; sym_kIs; sym_kMod; sym_kNot; sym_kOr; sym_kShl;
   sym_kShr; sym_kThen; sym_kXor; anon_sym_LBRACK; anon_sym_DOT; sym_kEq; sym_kNeq; sym_kLte;
   sym_kGte; sym_kAdd; sym_kSub; sym_kMul; sym_kHat].

Definition syms_217 : list ts_symbol :=
  [sym_kGeneric; sym_kOperator; sym_kAsm; sym_kBegin; sym_kClass; sym_kConst; sym_kConstructor;
   sym_kDestructor; sym_kExports; sym_kFunction; sym_kIn; sym_kIs; sym_kLabel; sym_kNot; sym_kOr;
   sym_kProcedure; sym_kResourcestring; sym_kThreadvar; sym_kType; sym_kUses; sym_kVar; sym_kXor;
   anon_sym_LBRACK; aux_sym_ppUsesBlock_token1; anon_sym_DOT; sym_kEq; sym_kNeq; sym_kLte;
   sym_kGte; sym_kAdd; sym_kSub].

Definition syms_218 : list ts_symbol :=
  [sym_ppFragmentExpr; sym_ppFragmentStmt; sym__literalStringMultiline; sym_identifier;
   sym_kSpecialize; sym_kAsm; sym_kBegin; sym_kCase; sym_kConst; sym_kFor; sym_kFunction;
   sym_kGoto; sym_kIf; sym_kInherited; sym_kNil; sym_kNot; sym_kProcedure; sym_kRaise;
   sym_kRepeat; sym_kString; sym_kTry; sym_kVar; sym_kWhile; sym_kWith; anon_sym_SEMI;
   anon_sym_COMMA; anon_sym_LBRACK; aux_sym__literalString_token1; anon_sym_POUND;
   aux_sym__literalInt_token2; aux_sym__literalInt_token3; aux_sym_ppUsesBlock_token1;
   aux_sym_ppUsesBlock_token2; aux_sym_ppUsesBlock_token3; sym_kAt; sym_kTrue; sym_kFalse;
   sym_labelNumber].

Definition syms_219 : list ts_symbol :=
  [sym_ppFragmentExpr; sym__literalStringMultiline; sym_identifier; sym_kSpecialize; sym_kAsm;
   sym_kBegin; sym_kCase; sym_kConst; sym_kElse; sym_kEnd; sym_kFinalization; sym_kFor;
   sym_kFunction; sym_kGoto; sym_kIf; sym_kImplementation; sym_kInherited; sym_kInitialization;
   sym_kInterface; sym_kNil; sym_kNot; sym_kProcedure; sym_kRaise; sym_kRepeat; sym_kString;
   sym_kTry; sym_kVar; sym_kWhile; sym_kWith; anon_sym_SEMI; anon_sym_LBRACK;
   aux_sym__literalString_token1; anon_sym_POUND; aux_sym__literalInt_token2;
   aux_sym__literalInt_token3; sym_kAt; sym_kTrue; sym_kFalse; sym_labelNumber].

Definition syms_220 : list ts_symbol :=
  [sym_kGeneric; sym_kOperator; sym_kAsm; sym_kBegin; sym_kClass; sym_kConst; sym_kConstructor;
   sym_kDestructor; sym_kExports; sym_kFunction; sym_kLabel; sym_kProcedure; sym_kResourcestring;
   sym_kThreadvar; sym_kType; sym_kUses; sym_kVar; anon_sym_LBRACK; aux_sym_ppUsesBlock_token1;
   anon_sym_DOT].

Definition syms_221 : list ts_symbol :=
  [sym_kGeneric; sym_kOperator; sym_kAnd; sym_kAs; sym_kAsm; sym_kBegin; sym_kClass; sym_kConst;
   sym_kConstructor; sym_kDestructor; sym_kDiv; sym_kExports; sym_kFunction; sym_kIn; sym_kIs;
   sym_kLabel; sym_kMod; sym_kNot; sym_kOr; sym_kProcedure; sym_kResourcestring; sym_kShl;
   sym_kShr; sym_kThen; sym_kThreadvar; sym_kType; sym_kUses; sym_kVar; sym_kXor;
   anon_sym_LBRACK; aux_sym_ppUsesBlock_token1; anon_sym_DOT; sym_kEq; sym_kNeq; sym_kLte;
   sym_kGte; sym_kAdd; sym_kSub; sym_kMul; sym_kHat].

Definition syms_222 : list ts_symbol :=
  [sym_kGeneric; sym_kOperator; sym_kAnd; sym_kAs; sym_kAsm; sym_kBegin; sym_kClass; sym_kConst;
   sym_kConstructor; sym_kDestructor; sym_kDiv; sym_kExports; sym_kFunction; sym_kIn; sym_kIs;
   sym_kLabel; sym_kMod; sym_kNot; sym_kOr; sym_kProcedure; sym_kResourcestring; sym_kShl;
   sym_kShr; sym_kThreadvar; sym_kType; sym_kUses; sym_kVar; sym_kXor; anon_sym_LBRACK;
   aux_sym_ppUsesBlock_token1; sym_kEq; sym_kNeq; sym_kLte; sym_kGte; sym_kAdd; sym_kSub;
   sym_kMul; sym_kHat].

Definition syms_223 : list ts_symbol :=
  [sym_ppFragmentExpr; sym_ppFragmentStmt; sym__literalStringMultiline; sym_identifier;
   sym_kSpecialize; sym_kAsm; sym_kBegin; sym_kCase; sym_kConst; sym_kElse; sym_kExcept;
   sym_kFinally; sym_kFor; sym_kFunction; sym_kGoto; sym_kIf; sym_kInherited; sym_kNil; sym_kNot;
   sym_kProcedure; sym_kRaise; sym_kRepeat; sym_kString; sym_kTry; sym_kVar; sym_kWhile;
   sym_kWith; anon_sym_SEMI; anon_sym_LBRACK; aux_sym__literalString_token1; anon_sym_POUND;
   aux_sym__literalInt_token2; aux_sym__literalInt_token3; aux_sym_ppUsesBlock_token1; sym_kAt;
   sym_kTrue; sym_kFalse; sym_labelNumber].

Definition syms_224 : list ts_symbol :=
  [sym_ppFragmentExpr; sym__literalStringMultiline; sym_kSpecialize; sym_kOtherwise; sym_kAsm;
   sym_kBegin; sym_kCase; sym_kConst; sym_kElse; sym_kEnd; sym_kFor; sym_kFunction; sym_kGoto;
   sym_kIf; sym_kInherited; sym_kNil; sym_kNot; sym_kProcedure; sym_kRaise; sym_kRepeat;
   sym_kString; sym_kTry; sym_kVar; sym_kWhile; sym_kWith; anon_sym_SEMI; anon_sym_LBRACK;
   aux_sym__literalString_token1; anon_sym_POUND; aux_sym__literalInt_token2;
   aux_sym__literalInt_token3; sym_kAt; sym_kTrue; sym_kFalse].

Definition syms_225 : list ts_symbol :=
  [sym_ppFragmentExpr; sym__literalStringMultiline; sym_identifier; sym_kSpecialize; sym_kAsm;
   sym_kBegin; sym_kCase; sym_kConst; sym_kEnd; sym_kFinalization; sym_kFor; sym_kFunction;
   sym_kGoto; sym_kIf; sym_kImplementation; sym_kInherited; sym_kInitialization; sym_kInterface;
   sym_kNil; sym_kNot; sym_kProcedure; sym_kRaise; sym_kRepeat; sym_kString; sym_kTry; sym_kVar;
   sym_kWhile; sym_kWith; anon_sym_SEMI; anon_sym_LBRACK; aux_sym__literalString_token1;
   anon_sym_POUND; aux_sym__literalInt_token2; aux_sym__literalInt_token3; sym_kAt; sym_kTrue;
   sym_kFalse; sym_labelNumber].

Definition syms_226 : list ts_symbol :=
  [sym_ppFragmentExpr; sym_ppFragmentStmt; sym__literalStringMultiline; sym_identifier;
   sym_kSpecialize; sym_kAsm; sym_kBegin; sym_kCase; sym_kConst; sym_kExcept; sym_kFinally;
   sym_kFor; sym_kFunction; sym_kGoto; sym_kIf; sym_kInherited; sym_kNil; sym_kNot;
   sym_kProcedure; sym_kRaise; sym_kRepeat; sym_kString; sym_kTry; sym_kVar; sym_kWhile;
   sym_kWith; anon_sym_SEMI; anon_sym_LBRACK; aux_sym__literalString_token1; anon_sym_POUND;
   aux_sym__literalInt_token2; aux_sym__literalInt_token3; aux_sym_ppUsesBlock_token1; sym_kAt;
   sym_kTrue; sym_kFalse; sym_labelNumber].

Definition syms_227 : list ts_symbol :=
  [sym_ppFragmentExpr; sym__literalStringMultiline; sym_kSpecialize; sym_kAsm; sym_kBegin;
   sym_kCase; sym_kConst; sym_kElse; sym_kExcept; sym_kFinally; sym_kFor; sym_kFunction;
   sym_kGoto; sym_kIf; sym_kInherited; sym_kNil; sym_kNot; sym_kProcedure; sym_kRaise;
   sym_kRepeat; sym_kString; sym_kTry; sym_kVar; sym_kWhile; sym_kWith; anon_sym_SEMI;
   anon_sym_LBRACK; aux_sym__literalString_token1; anon_sym_POUND; aux_sym__literalInt_token2;
   aux_sym__literalInt_token3; sym_kAt; sym_kTrue; sym_kFalse].

Definition syms_228 : list ts_symbol :=
  [sym_ppFragmentExpr; sym_ppFragmentStmt; sym__literalStringMultiline; sym_identifier;
   sym_kSpecialize; sym_kAsm; sym_kBegin; sym_kCase; sym_kConst; sym_kElse; sym_kEnd; sym_kFor;
   sym_kFunction; sym_kGoto; sym_kIf; sym_kInherited; sym_kNil; sym_kNot; sym_kProcedure;
   sym_kRaise; sym_kRepeat; sym_kString; sym_kTry; sym_kVar; sym_kWhile; sym_kWith;
   anon_sym_SEMI; anon_sym_LBRACK; aux_sym__literalString_token1; anon_sym_POUND;
   aux_sym__literalInt_token2; aux_sym__literalInt_token3; aux_sym_ppUsesBlock_token1; sym_kAt;
   sym_kTrue; sym_kFalse; sym_labelNumber].

Definition syms_229 : list ts_symbol :=
  [sym_kGeneric; sym_kOperator; sym_kAsm; sym_kBegin; sym_kClass; sym_kConst; sym_kConstructor;
   sym_kDestructor; sym_kExports; sym_kFunction; sym_kLabel; sym_kProcedure; sym_kResourcestring;
   sym_kThreadvar; sym_kType; sym_kUses; sym_kVar; anon_sym_LBRACK; aux_sym_ppUsesBlock_token1].

Definition syms_230 : list ts_symbol :=
  [sym_ppFragmentExpr; sym_ppFragmentStmt; sym__literalStringMultiline; sym_identifier;
   sym_kSpecialize; sym_kAsm; sym_kBegin; sym_kCase; sym_kConst; sym_kElse; sym_kFor;
   sym_kFunction; sym_kGoto; sym_kIf; sym_kInherited; sym_kNil; sym_kNot; sym_kProcedure;
   sym_kRaise; sym_kRepeat; sym_kString; sym_kTry; sym_kUntil; sym_kVar; sym_kWhile; sym_kWith;
   anon_sym_SEMI; anon_sym_LBRACK; aux_sym__literalString_token1; anon_sym_POUND;
   aux_sym__literalInt_token2; aux_sym__literalInt_token3; aux_sym_ppUsesBlock_token1; sym_kAt;
   sym_kTrue; sym_kFalse; sym_labelNumber].

Definition syms_231 : list ts_symbol :=
  [sym_ppFragmentExpr; sym_ppFragmentStmt; sym__literalStringMultiline; sym_identifier;
   sym_kSpecialize; sym_kAsm; sym_kBegin; sym_kCase; sym_kConst; sym_kEnd; sym_kFor;
   sym_kFunction; sym_kGoto; sym_kIf; sym_kInherited; sym_kNil; sym_kNot; sym_kProcedure;
   sym_kRaise; sym_kRepeat; sym_kString; sym_kTry; sym_kVar; sym_kWhile; sym_kWith;
   anon_sym_SEMI; anon_sym_LBRACK; aux_sym__literalString_token1; anon_sym_POUND;
   aux_sym__literalInt_token2; aux_sym__literalInt_token3; aux_sym_ppUsesBlock_token1; sym_kAt;
   sym_kTrue; sym_kFalse; sym_labelNumber].

Definition syms_232 : list ts_symbol :=
  [sym_ppFragmentExpr; sym_ppFragmentStmt; sym__literalStringMultiline; sym_identifier;
   sym_kSpecialize; sym_kAsm; sym_kBegin; sym_kCase; sym_kConst; sym_kFor; sym_kFunction;
   sym_kGoto; sym_kIf; sym_kInherited; sym_kNil; sym_kNot; sym_kProcedure; sym_kRaise;
   sym_kRepeat; sym_kString; sym_kTry; sym_kUntil; sym_kVar; sym_kWhile; sym_kWith;
   anon_sym_SEMI; anon_sym_LBRACK; aux_sym__literalString_token1; anon_sym_POUND;
   aux_sym__literalInt_token2; aux_sym__literalInt_token3; aux_sym_ppUsesBlock_token1; sym_kAt;
   sym_kTrue; sym_kFalse; sym_labelNumber].

Definition syms_233 : list ts_symbol :=
  [sym_ppFragmentExpr; sym__literalStringMultiline; sym_kSpecialize; sym_kAsm; sym_kBegin;
   sym_kCase; sym_kConst; sym_kElse; sym_kEnd; sym_kFor; sym_kFunction; sym_kGoto; sym_kIf;
   sym_kInherited; sym_kNil; sym_kNot; sym_kProcedure; sym_kRaise; sym_kRepeat; sym_kString;
   sym_kTry; sym_kVar; sym_kWhile; sym_kWith; anon_sym_SEMI; anon_sym_LBRACK;
   aux_sym__literalString_token1; anon_sym_POUND; aux_sym__literalInt_token2;
   aux_sym__literalInt_token3; sym_kAt; sym_kTrue; sym_kFalse].

Definition syms_234 : list ts_symbol :=
  [sym_ppFragmentExpr; sym__literalStringMultiline; sym_kSpecialize; sym_kAsm; sym_kBegin;
   sym_kCase; sym_kConst; sym_kExcept; sym_kFinally; sym_kFor; sym_kFunction; sym_kGoto; sym_kIf;
   sym_kInherited; sym_kNil; sym_kNot; sym_kProcedure; sym_kRaise; sym_kRepeat; sym_kString;
   sym_kTry; sym_kVar; sym_kWhile; sym_kWith; anon_sym_SEMI; anon_sym_LBRACK;
   aux_sym__literalString_token1; anon_sym_POUND; aux_sym__literalInt_token2;
   aux_sym__literalInt_token3; sym_kAt; sym_kTrue; sym_kFalse].

Definition syms_235 : list ts_symbol :=
  [sym_ppFragmentExpr; sym__literalStringMultiline; sym_kSpecialize; sym_kAsm; sym_kBegin;
   sym_kCase; sym_kConst; sym_kElse; sym_kFor; sym_kFunction; sym_kGoto; sym_kIf; sym_kInherited;
   sym_kNil; sym_kNot; sym_kProcedure; sym_kRaise; sym_kRepeat; sym_kString; sym_kTry;
   sym_kUntil; sym_kVar; sym_kWhile; sym_kWith; anon_sym_SEMI; anon_sym_LBRACK;
   aux_sym__literalString_token1; anon_sym_POUND; aux_sym__literalInt_token2;
   aux_sym__literalInt_token3; sym_kAt; sym_kTrue; sym_kFalse].

Definition syms_236 : list ts_symbol :=
  [aux_sym__classDeclarations; sym_ppBlock; sym_declTypes; sym_declVars; sym_declConsts;
   sym_declProc; sym_declProp].

Definition syms_237 : list ts_symbol :=
  [sym_ppFragmentExpr; sym__literalStringMultiline; sym_identifier; sym_kSpecialize; sym_kAsm;
   sym_kBegin; sym_kCase; sym_kConst; sym_kElse; sym_kExcept; sym_kFinally; sym_kFor;
   sym_kFunction; sym_kGoto; sym_kIf; sym_kInherited; sym_kNil; sym_kNot; sym_kProcedure;
   sym_kRaise; sym_kRepeat; sym_kString; sym_kTry; sym_kVar; sym_kWhile; sym_kWith;
   anon_sym_SEMI; anon_sym_LBRACK; aux_sym__literalString_token1; anon_sym_POUND;
   aux_sym__literalInt_token2; aux_sym__literalInt_token3; sym_kAt; sym_kTrue; sym_kFalse;
   sym_labelNumber].

Definition syms_238 : list ts_symbol :=
  [sym_ppFragmentExpr; sym__literalStringMultiline; sym_kSpecialize; sym_kAsm; sym_kBegin;
   sym_kCase; sym_kConst; sym_kElse; sym_kFor; sym_kFunction; sym_kGoto; sym_kIf; sym_kInherited;
   sym_kNil; sym_kNot; sym_kProcedure; sym_kRaise; sym_kRepeat; sym_kString; sym_kTry; sym_kVar;
   sym_kWhile; sym_kWith; anon_sym_SEMI; anon_sym_LBRACK; aux_sym__literalString_token1;
   anon_sym_POUND; aux_sym__literalInt_token2; aux_sym__literalInt_token3; sym_kAt; sym_kTrue;
   sym_kFalse].

Definition syms_239 : list ts_symbol :=
  [sym_blockTr; aux_sym__definitions; sym__definition; sym_defProc; sym_declProcFwd;
   sym_declUses; sym_ppBlock; sym_declExports; sym_declTypes; sym_declVars; sym_declConsts;
   sym_declLabels].

Definition syms_240 : list ts_symbol :=
  [sym_ppFragmentExpr; sym_ppFragmentStmt; sym__literalStringMultiline; sym_identifier;
   sym_kSpecialize; sym_kAsm; sym_kBegin; sym_kCase; sym_kConst; sym_kElse; sym_kFor;
   sym_kFunction; sym_kGoto; sym_kIf; sym_kInherited; sym_kNil; sym_kNot; sym_kProcedure;
   sym_kRaise; sym_kRepeat; sym_kString; sym_kTry; sym_kVar; sym_kWhile; sym_kWith;
   anon_sym_SEMI; anon_sym_LBRACK; aux_sym__literalString_token1; anon_sym_POUND;
   aux_sym__literalInt_token2; aux_sym__literalInt_token3; aux_sym_ppUsesBlock_token1; sym_kAt;
   sym_kTrue; sym_kFalse; sym_labelNumber].

Definition syms_241 : list ts_symbol :=
  [sym_ppFragmentExpr; sym__literalStringMultiline; sym_kSpecialize; sym_kAsm; sym_kBegin;
   sym_kCase; sym_kConst; sym_kFor; sym_kFunction; sym_kGoto; sym_kIf; sym_kInherited; sym_kNil;
   sym_kNot; sym_kProcedure; sym_kRaise; sym_kRepeat; sym_kString; sym_kTry; sym_kUntil;
   sym_kVar; sym_kWhile; sym_kWith; anon_sym_SEMI; anon_sym_LBRACK;
   aux_sym__literalString_token1; anon_sym_POUND; aux_sym__literalInt_token2;
   aux_sym__literalInt_token3; sym_kAt; sym_kTrue; sym_kFalse].

Definition syms_242 : list ts_symbol :=
  [sym_ppFragmentExpr; sym__literalStringMultiline; sym_identifier; sym_kSpecialize;
   sym_kOtherwise; sym_kAsm; sym_kBegin; sym_kCase; sym_kConst; sym_kElse; sym_kEnd; sym_kFor;
   sym_kFunction; sym_kGoto; sym_kIf; sym_kInherited; sym_kNil; sym_kNot; sym_kProcedure;
   sym_kRaise; sym_kRepeat; sym_kString; sym_kTry; sym_kVar; sym_kWhile; sym_kWith;
   anon_sym_SEMI; anon_sym_LBRACK; aux_sym__literalString_token1; anon_sym_POUND;
   aux_sym__literalInt_token2; aux_sym__literalInt_token3; sym_kAt; sym_kTrue; sym_kFalse;
   sym_labelNumber].

Definition syms_243 : list ts_symbol :=
  [sym_ppFragmentExpr; sym__literalStringMultiline; sym_kSpecialize; sym_kAsm; sym_kBegin;
   sym_kCase; sym_kConst; sym_kEnd; sym_kFor; sym_kFunction; sym_kGoto; sym_kIf; sym_kInherited;
   sym_kNil; sym_kNot; sym_kProcedure; sym_kRaise; sym_kRepeat; sym_kString; sym_kTry; sym_kVar;
   sym_kWhile; sym_kWith; anon_sym_SEMI; anon_sym_LBRACK; aux_sym__literalString_token1;
   anon_sym_POUND; aux_sym__literalInt_token2; aux_sym__literalInt_token3; sym_kAt; sym_kTrue;
   sym_kFalse].

Definition syms_244 : list ts_symbol :=
  [sym_kPublished; sym_kPublic; sym_kProtected; sym_kPrivate; sym_kStrict; sym_kRequired;
   sym_kOptional; sym_kCase; sym_kEnd].

Definition syms_245 : list ts_symbol :=
  [sym_ppFragmentExpr; sym__literalStringMultiline; sym_identifier; sym_kSpecialize; sym_kAsm;
   sym_kBegin; sym_kCase; sym_kConst; sym_kElse; sym_kEnd; sym_kFor; sym_kFunction; sym_kGoto;
   sym_kIf; sym_kInherited; sym_kNil; sym_kNot; sym_kProcedure; sym_kRaise; sym_kRepeat;
   sym_kString; sym_kTry; sym_kVar; sym_kWhile; sym_kWith; anon_sym_SEMI; anon_sym_LBRACK;
   aux_sym__literalString_token1; anon_sym_POUND; aux_sym__literalInt_token2;
   aux_sym__literalInt_token3; sym_kAt; sym_kTrue; sym_kFalse; sym_labelNumber].

Definition syms_246 : list ts_symbol :=
  [sym_ppFragmentExpr; sym__literalStringMultiline; sym_identifier; sym_kSpecialize; sym_kAsm;
   sym_kBegin; sym_kCase; sym_kConst; sym_kEnd; sym_kFor; sym_kFunction; sym_kGoto; sym_kIf;
   sym_kInherited; sym_kNil; sym_kNot; sym_kProcedure; sym_kRaise; sym_kRepeat; sym_kString;
   sym_kTry; sym_kVar; sym_kWhile; sym_kWith; anon_sym_SEMI; anon_sym_LBRACK;
   aux_sym__literalString_token1; anon_sym_POUND; aux_sym__literalInt_token2;
   aux_sym__literalInt_token3; sym_kAt; sym_kTrue; sym_kFalse; sym_labelNumber].

Definition syms_247 : list ts_symbol :=
  [sym_ppFragmentExpr; sym__literalStringMultiline; sym_kSpecialize; sym_kAsm; sym_kBegin;
   sym_kCase; sym_kConst; sym_kFor; sym_kFunction; sym_kGoto; sym_kIf; sym_kInherited; sym_kNil;
   sym_kNot; sym_kProcedure; sym_kRaise; sym_kRepeat; sym_kString; sym_kTry; sym_kVar;
   sym_kWhile; sym_kWith; anon_sym_SEMI; anon_sym_LBRACK; aux_sym__literalString_token1;
   anon_sym_POUND; aux_sym__literalInt_token2; aux_sym__literalInt_token3; sym_kAt; sym_kTrue;
   sym_kFalse].

Definition syms_248 : list ts_symbol :=
  [sym__literalStringMultiline; sym_kAnd; sym_kAs; sym_kDiv; sym_kElse; sym_kEnd;
   sym_kFinalization; sym_kImplementation; sym_kIn; sym_kInitialization; sym_kInterface; sym_kIs;
   sym_kMod; sym_kNot; sym_kOr; sym_kShl; sym_kShr; sym_kXor; anon_sym_SEMI; anon_sym_LBRACK;
   aux_sym__literalString_token1; anon_sym_POUND; anon_sym_DOT; sym_kEq; sym_kNeq; sym_kLte;
   sym_kGte; sym_kHat; sym_kAssign; sym_kAssignAdd; sym_kAssignSub; sym_kAssignMul;
   sym_kAssignDiv].

Definition syms_249 : list ts_symbol :=
  [sym_ppFragmentExpr; sym__literalStringMultiline; sym_identifier; sym_kSpecialize; sym_kAsm;
   sym_kBegin; sym_kCase; sym_kConst; sym_kExcept; sym_kFinally; sym_kFor; sym_kFunction;
   sym_kGoto; sym_kIf; sym_kInherited; sym_kNil; sym_kNot; sym_kProcedure; sym_kRaise;
   sym_kRepeat; sym_kString; sym_kTry; sym_kVar; sym_kWhile; sym_kWith; anon_sym_SEMI;
   anon_sym_LBRACK; aux_sym__literalString_token1; anon_sym_POUND; aux_sym__literalInt_token2;
   aux_sym__literalInt_token3; sym_kAt; sym_kTrue; sym_kFalse; sym_labelNumber].

Definition syms_250 : list ts_symbol :=
  [sym_ppFragmentExpr; sym__literalStringMultiline; sym_identifier; sym_kSpecialize; sym_kAsm;
   sym_kBegin; sym_kCase; sym_kConst; sym_kElse; sym_kFor; sym_kFunction; sym_kGoto; sym_kIf;
   sym_kInherited; sym_kNil; sym_kNot; sym_kProcedure; sym_kRaise; sym_kRepeat; sym_kString;
   sym_kTry; sym_kUntil; sym_kVar; sym_kWhile; sym_kWith; anon_sym_SEMI; anon_sym_LBRACK;
   aux_sym__literalString_token1; anon_sym_POUND; aux_sym__literalInt_token2;
   aux_sym__literalInt_token3; sym_kAt; sym_kTrue; sym_kFalse; sym_labelNumber].

Definition syms_251 : list ts_symbol :=
  [sym_ppFragmentExpr; sym__literalStringMultiline; sym_identifier; sym_kSpecialize; sym_kAsm;
   sym_kBegin; sym_kCase; sym_kConst; sym_kElse; sym_kFor; sym_kFunction; sym_kGoto; sym_kIf;
   sym_kInherited; sym_kNil; sym_kNot; sym_kProcedure; sym_kRaise; sym_kRepeat; sym_kString;
   sym_kTry; sym_kVar; sym_kWhile; sym_kWith; anon_sym_SEMI; anon_sym_LBRACK;
   aux_sym__literalString_token1; anon_sym_POUND; aux_sym__literalInt_token2;
   aux_sym__literalInt_token3; sym_kAt; sym_kTrue; sym_kFalse; sym_labelNumber].

Definition syms_252 : list ts_symbol :=
  [sym_ppFragmentExpr; sym__literalStringMultiline; sym_identifier; sym_kSpecialize; sym_kAsm;
   sym_kBegin; sym_kCase; sym_kConst; sym_kFor; sym_kFunction; sym_kGoto; sym_kIf;
   sym_kInherited; sym_kNil; sym_kNot; sym_kProcedure; sym_kRaise; sym_kRepeat; sym_kString;
   sym_kTry; sym_kVar; sym_kWhile; sym_kWith; anon_sym_SEMI; anon_sym_LBRACK;
   aux_sym__literalString_token1; anon_sym_POUND; aux_sym__literalInt_token2;
   aux_sym__literalInt_token3; sym_kAt; sym_kTrue; sym_kFalse; sym_labelNumber].

Definition syms_253 : list ts_symbol :=
  [sym_ppFragmentExpr; sym__literalStringMultiline; sym_identifier; sym_kSpecialize; sym_kAsm;
   sym_kBegin; sym_kCase; sym_kConst; sym_kFor; sym_kFunction; sym_kGoto; sym_kIf;
   sym_kInherited; sym_kNil; sym_kNot; sym_kProcedure; sym_kRaise; sym_kRepeat; sym_kString;
   sym_kTry; sym_kUntil; sym_kVar; sym_kWhile; sym_kWith; anon_sym_SEMI; anon_sym_LBRACK;
   aux_sym__literalString_token1; anon_sym_POUND; aux_sym__literalInt_token2;
   aux_sym__literalInt_token3; sym_kAt; sym_kTrue; sym_kFalse; sym_labelNumber].

Definition syms_254 : list ts_symbol :=
  [sym_declProcFwd; aux_sym__declarations; sym_declUses; sym_ppBlock; sym_declExports;
   sym_declTypes; sym_declVars; sym_declConsts; sym_declProc; sym_declLabels; sym_declProp].

Definition syms_255 : list ts_symbol :=
  [sym__literalStringMultiline; sym_kAnd; sym_kAs; sym_kDiv; sym_kEnd; sym_kFinalization;
   sym_kImplementation; sym_kIn; sym_kInitialization; sym_kInterface; sym_kIs; sym_kMod;
   sym_kNot; sym_kOr; sym_kShl; sym_kShr; sym_kXor; anon_sym_SEMI; anon_sym_LBRACK;
   aux_sym__literalString_token1; anon_sym_POUND; anon_sym_DOT; sym_kEq; sym_kNeq; sym_kLte;
   sym_kGte; sym_kHat; sym_kAssign; sym_kAssignAdd; sym_kAssignSub; sym_kAssignMul;
   sym_kAssignDiv].

Definition syms_256 : list ts_symbol :=
  [sym__literalStringMultiline; sym_kRead; sym_kWrite; sym_kImplements; sym_kDefault;
   sym_kNodefault; sym_kStored; sym_kIndex; sym_kDispId; sym_kAnd; sym_kAs; sym_kDiv; sym_kIn;
   sym_kIs; sym_kMod; sym_kNot; sym_kOf; sym_kOr; sym_kShl; sym_kShr; sym_kXor; anon_sym_SEMI;
   anon_sym_LBRACK; aux_sym__literalString_token1; anon_sym_POUND; anon_sym_DOT; sym_kEq;
   sym_kNeq; sym_kLte; sym_kGte; sym_kAdd; sym_kSub; sym_kMul; sym_kHat].

Definition syms_257 : list ts_symbol :=
  [sym_kAnd; sym_kAs; sym_kDiv; sym_kElse; sym_kEnd; sym_kFinalization; sym_kImplementation;
   sym_kIn; sym_kInitialization; sym_kInterface; sym_kIs; sym_kMod; sym_kNot; sym_kOr; sym_kShl;
   sym_kShr; sym_kXor; anon_sym_SEMI; anon_sym_LBRACK; anon_sym_DOT; sym_kEq; sym_kNeq; sym_kLte;
   sym_kGte; sym_kAssign; sym_kAssignAdd; sym_kAssignSub; sym_kAssignMul; sym_kAssignDiv].

Definition syms_258 : list ts_symbol :=
  [sym_kMul; sym_kFdiv].

Definition syms_259 : list ts_symbol :=
  [sym_kOr; sym_kXor].

Definition syms_260 : list ts_symbol :=
  [sym_kAnd; sym_kDiv; sym_kMod; sym_kShl; sym_kShr].

Definition syms_261 : list ts_symbol :=
  [sym_kElse; sym_kEnd; sym_kFinalization; sym_kImplementation; sym_kIn; sym_kInitialization;
   sym_kInterface; sym_kIs; sym_kNot; anon_sym_SEMI; anon_sym_LBRACK; anon_sym_DOT; sym_kEq;
   sym_kNeq; sym_kLte; sym_kGte; sym_kAssign; sym_kAssignAdd; sym_kAssignSub; sym_kAssignMul;
   sym_kAssignDiv].

Definition syms_262 : list ts_symbol :=
  [anon_sym_LPAREN; sym_kLt; sym_kGt; sym_kAdd; sym_kSub].

Definition syms_263 : list ts_symbol :=
  [sym_kElse; sym_kEnd; sym_kFinalization; sym_kImplementation; sym_kIn; sym_kInitialization;
   sym_kInterface; sym_kIs; sym_kNot; sym_kOr; sym_kXor; anon_sym_SEMI; anon_sym_LBRACK;
   anon_sym_DOT; sym_kEq; sym_kNeq; sym_kLte; sym_kGte; sym_kAssign; sym_kAssignAdd;
   sym_kAssignSub; sym_kAssignMul; sym_kAssignDiv].

Definition syms_264 : list ts_symbol :=
  [sym__literalStringMultiline; sym_kRead; sym_kWrite; sym_kImplements; sym_kDefault;
   sym_kNodefault; sym_kStored; sym_kIndex; sym_kDispId; sym_kAnd; sym_kAs; sym_kDiv; sym_kIn;
   sym_kIs; sym_kMod; sym_kNot; sym_kOr; sym_kShl; sym_kShr; sym_kXor; anon_sym_SEMI;
   anon_sym_COMMA; anon_sym_LBRACK; aux_sym__literalString_token1; anon_sym_POUND; anon_sym_DOT;
   sym_kEq; sym_kNeq; sym_kLte; sym_kGte; sym_kAdd; sym_kSub; sym_kMul; sym_kHat].

Definition syms_265 : list ts_symbol :=
  [anon_sym_LPAREN; sym_kAdd; sym_kSub; sym_kMul; sym_kFdiv].

Definition syms_266 : list ts_symbol :=
  [sym_kAnd; sym_kAs; sym_kDiv; sym_kElse; sym_kEnd; sym_kFinalization; sym_kImplementation;
   sym_kIn; sym_kInitialization; sym_kInterface; sym_kIs; sym_kMod; sym_kNot; sym_kOr; sym_kShl;
   sym_kShr; sym_kXor; anon_sym_SEMI; anon_sym_LBRACK; sym_kEq; sym_kNeq; sym_kLte; sym_kGte;
   sym_kHat; sym_kAssign; sym_kAssignAdd; sym_kAssignSub; sym_kAssignMul; sym_kAssignDiv].

Definition syms_267 : list ts_symbol :=
  [sym_kGt; sym_kAdd; sym_kSub; sym_kMul; sym_kFdiv].

Definition syms_268 : list ts_symbol :=
  [sym_kAnd; sym_kAs; sym_kDiv; sym_kElse; sym_kEnd; sym_kFinalization; sym_kImplementation;
   sym_kIn; sym_kInitialization; sym_kInterface; sym_kIs; sym_kMod; sym_kNot; sym_kOr; sym_kShl;
   sym_kShr; sym_kXor; anon_sym_SEMI; sym_kEq; sym_kNeq; sym_kLte; sym_kGte; sym_kHat;
   sym_kAssign; sym_kAssignAdd; sym_kAssignSub; sym_kAssignMul; sym_kAssignDiv].

Definition syms_269 : list ts_symbol :=
  [sym_kElse; sym_kEnd; sym_kFinalization; sym_kImplementation; sym_kInitialization;
   sym_kInterface; anon_sym_SEMI; anon_sym_LBRACK; anon_sym_DOT; sym_kAssign; sym_kAssignAdd;
   sym_kAssignSub; sym_kAssignMul; sym_kAssignDiv].

Definition syms_270 : list ts_symbol :=
  [sym_kAnd; sym_kAs; sym_kDiv; sym_kEnd; sym_kFinalization; sym_kImplementation; sym_kIn;
   sym_kInitialization; sym_kInterface; sym_kIs; sym_kMod; sym_kNot; sym_kOr; sym_kShl; sym_kShr;
   sym_kXor; anon_sym_SEMI; anon_sym_LBRACK; anon_sym_DOT; sym_kEq; sym_kNeq; sym_kLte; sym_kGte;
   sym_kAssign; sym_kAssignAdd; sym_kAssignSub; sym_kAssignMul; sym_kAssignDiv].

Definition syms_271 : list ts_symbol :=
  [sym_kEnd; sym_kFinalization; sym_kImplementation; sym_kIn; sym_kInitialization;
   sym_kInterface; sym_kIs; sym_kNot; anon_sym_SEMI; anon_sym_LBRACK; anon_sym_DOT; sym_kEq;
   sym_kNeq; sym_kLte; sym_kGte; sym_kAssign; sym_kAssignAdd; sym_kAssignSub; sym_kAssignMul;
   sym_kAssignDiv].

Definition syms_272 : list ts_symbol :=
  [sym_kEnd; sym_kFinalization; sym_kImplementation; sym_kIn; sym_kInitialization;
   sym_kInterface; sym_kIs; sym_kNot; sym_kOr; sym_kXor; anon_sym_SEMI; anon_sym_LBRACK;
   anon_sym_DOT; sym_kEq; sym_kNeq; sym_kLte; sym_kGte; sym_kAssign; sym_kAssignAdd;
   sym_kAssignSub; sym_kAssignMul; sym_kAssignDiv].

Definition syms_273 : list ts_symbol :=
  [sym__literalStringMultiline; sym_kOtherwise; sym_kAnd; sym_kAs; sym_kDiv; sym_kElse; sym_kEnd;
   sym_kIn; sym_kIs; sym_kMod; sym_kNot; sym_kOr; sym_kShl; sym_kShr; sym_kXor; anon_sym_SEMI;
   anon_sym_LBRACK; aux_sym__literalString_token1; anon_sym_POUND; anon_sym_DOT; sym_kEq;
   sym_kNeq; sym_kLte; sym_kGte; sym_kHat; sym_kAssign; sym_kAssignAdd; sym_kAssignSub;
   sym_kAssignMul; sym_kAssignDiv].

Definition syms_274 : list ts_symbol :=
  [sym_kAnd; sym_kAs; sym_kDiv; sym_kEnd; sym_kFinalization; sym_kImplementation; sym_kIn;
   sym_kInitialization; sym_kInterface; sym_kIs; sym_kMod; sym_kNot; sym_kOr; sym_kShl; sym_kShr;
   sym_kXor; anon_sym_SEMI; sym_kEq; sym_kNeq; sym_kLte; sym_kGte; sym_kHat; sym_kAssign;
   sym_kAssignAdd; sym_kAssignSub; sym_kAssignMul; sym_kAssignDiv].

Definition syms_275 : list ts_symbol :=
  [sym_kAnd; sym_kAs; sym_kDiv; sym_kEnd; sym_kFinalization; sym_kImplementation; sym_kIn;
   sym_kInitialization; sym_kInterface; sym_kIs; sym_kMod; sym_kNot; sym_kOr; sym_kShl; sym_kShr;
   sym_kXor; anon_sym_SEMI; anon_sym_LBRACK; sym_kEq; sym_kNeq; sym_kLte; sym_kGte; sym_kHat;
   sym_kAssign; sym_kAssignAdd; sym_kAssignSub; sym_kAssignMul; sym_kAssignDiv].

Definition syms_276 : list ts_symbol :=
  [sym__literalStringMultiline; sym_kAnd; sym_kAs; sym_kDiv; sym_kElse; sym_kExcept;
   sym_kFinally; sym_kIn; sym_kIs; sym_kMod; sym_kNot; sym_kOr; sym_kShl; sym_kShr; sym_kXor;
   anon_sym_SEMI; anon_sym_LBRACK; aux_sym__literalString_token1; anon_sym_POUND; anon_sym_DOT;
   sym_kEq; sym_kNeq; sym_kLte; sym_kGte; sym_kHat; sym_kAssign; sym_kAssignAdd; sym_kAssignSub;
   sym_kAssignMul; sym_kAssignDiv].

Definition syms_277 : list ts_symbol :=
  [sym_kEnd; sym_kFinalization; sym_kImplementation; sym_kInitialization; sym_kInterface;
   anon_sym_SEMI; anon_sym_LBRACK; anon_sym_DOT; sym_kAssign; sym_kAssignAdd; sym_kAssignSub;
   sym_kAssignMul; sym_kAssignDiv].

Definition syms_278 : list ts_symbol :=
  [sym__literalStringMultiline; sym_kAnd; sym_kAs; sym_kDiv; sym_kExcept; sym_kFinally; sym_kIn;
   sym_kIs; sym_kMod; sym_kNot; sym_kOr; sym_kShl; sym_kShr; sym_kXor; anon_sym_SEMI;
   anon_sym_LBRACK; aux_sym__literalString_token1; anon_sym_POUND; anon_sym_DOT; sym_kEq;
   sym_kNeq; sym_kLte; sym_kGte; sym_kHat; sym_kAssign; sym_kAssignAdd; sym_kAssignSub;
   sym_kAssignMul; sym_kAssignDiv].

Definition syms_279 : list ts_symbol :=
  [sym_kRead; sym_kWrite; sym_kImplements; sym_kDefault; sym_kNodefault; sym_kStored; sym_kIndex;
   sym_kDispId; sym_kIn; sym_kIs; sym_kNot; sym_kOf; anon_sym_SEMI; anon_sym_LBRACK;
   anon_sym_DOT; sym_kEq; sym_kNeq; sym_kLte; sym_kGte].

Definition syms_280 : list ts_symbol :=
  [sym__literalStringMultiline; sym_kAnd; sym_kAs; sym_kDiv; sym_kElse; sym_kEnd; sym_kIn;
   sym_kIs; sym_kMod; sym_kNot; sym_kOr; sym_kShl; sym_kShr; sym_kXor; anon_sym_SEMI;
   anon_sym_LBRACK; aux_sym__literalString_token1; anon_sym_POUND; anon_sym_DOT; sym_kEq;
   sym_kNeq; sym_kLte; sym_kGte; sym_kHat; sym_kAssign; sym_kAssignAdd; sym_kAssignSub;
   sym_kAssignMul; sym_kAssignDiv].

Definition syms_281 : list ts_symbol :=
  [sym_kRead; sym_kWrite; sym_kImplements; sym_kDefault; sym_kNodefault; sym_kStored; sym_kIndex;
   sym_kDispId; sym_kAnd; sym_kAs; sym_kDiv; sym_kIn; sym_kIs; sym_kMod; sym_kNot; sym_kOr;
   sym_kShl; sym_kShr; sym_kXor; anon_sym_SEMI; anon_sym_COMMA; sym_kEq; sym_kNeq; sym_kLte;
   sym_kGte; sym_kAdd; sym_kSub; sym_kMul; sym_kHat].

Definition syms_282 : list ts_symbol :=
  [sym_kRead; sym_kWrite; sym_kImplements; sym_kDefault; sym_kNodefault; sym_kStored; sym_kIndex;
   sym_kDispId; sym_kIn; sym_kIs; sym_kNot; anon_sym_SEMI; anon_sym_COMMA; anon_sym_LBRACK;
   anon_sym_DOT; sym_kEq; sym_kNeq; sym_kLte; sym_kGte].

Definition syms_283 : list ts_symbol :=
  [sym__literalStringMultiline; sym_kAnd; sym_kAs; sym_kDiv; sym_kElse; sym_kIn; sym_kIs;
   sym_kMod; sym_kNot; sym_kOr; sym_kShl; sym_kShr; sym_kUntil; sym_kXor; anon_sym_SEMI;
   anon_sym_LBRACK; aux_sym__literalString_token1; anon_sym_POUND; anon_sym_DOT; sym_kEq;
   sym_kNeq; sym_kLte; sym_kGte; sym_kHat; sym_kAssign; sym_kAssignAdd; sym_kAssignSub;
   sym_kAssignMul; sym_kAssignDiv].

Definition syms_284 : list ts_symbol :=
  [sym_kRead; sym_kWrite; sym_kImplements; sym_kDefault; sym_kNodefault; sym_kStored; sym_kIndex;
   sym_kDispId; sym_kIn; sym_kIs; sym_kNot; sym_kOf; sym_kOr; sym_kXor; anon_sym_SEMI;
   anon_sym_LBRACK; anon_sym_DOT; sym_kEq; sym_kNeq; sym_kLte; sym_kGte; sym_kAdd; sym_kSub].

Definition syms_285 : list ts_symbol :=
  [sym_kRead; sym_kWrite; sym_kImplements; sym_kDefault; sym_kNodefault; sym_kStored; sym_kIndex;
   sym_kDispId; anon_sym_SEMI; anon_sym_COMMA; anon_sym_LBRACK; anon_sym_DOT].

Definition syms_286 : list ts_symbol :=
  [sym_kRead; sym_kWrite; sym_kImplements; sym_kDefault; sym_kNodefault; sym_kStored; sym_kIndex;
   sym_kDispId; sym_kAnd; sym_kAs; sym_kDiv; sym_kIn; sym_kIs; sym_kMod; sym_kNot; sym_kOf;
   sym_kOr; sym_kShl; sym_kShr; sym_kXor; anon_sym_SEMI; anon_sym_LBRACK; anon_sym_DOT; sym_kEq;
   sym_kNeq; sym_kLte; sym_kGte; sym_kAdd; sym_kSub; sym_kMul].

Definition syms_287 : list ts_symbol :=
  [sym_kRead; sym_kWrite; sym_kImplements; sym_kDefault; sym_kNodefault; sym_kStored; sym_kIndex;
   sym_kDispId; sym_kAnd; sym_kAs; sym_kDiv; sym_kIn; sym_kIs; sym_kMod; sym_kNot; sym_kOf;
   sym_kOr; sym_kShl; sym_kShr; sym_kXor; anon_sym_SEMI; sym_kEq; sym_kNeq; sym_kLte; sym_kGte;
   sym_kAdd; sym_kSub; sym_kMul; sym_kHat].

Definition syms_288 : list ts_symbol :=
  [sym__literalStringMultiline; sym_kRaiseAt; sym_kAnd; sym_kAs; sym_kDiv; sym_kElse; sym_kEnd;
   sym_kFinalization; sym_kImplementation; sym_kIn; sym_kInitialization; sym_kInterface; sym_kIs;
   sym_kMod; sym_kNot; sym_kOr; sym_kShl; sym_kShr; sym_kXor; anon_sym_SEMI; anon_sym_LBRACK;
   aux_sym__literalString_token1; anon_sym_POUND; anon_sym_DOT; sym_kEq; sym_kNeq; sym_kLte;
   sym_kGte; sym_kAdd; sym_kSub; sym_kMul; sym_kHat].

Definition syms_289 : list ts_symbol :=
  [sym_kRead; sym_kWrite; sym_kImplements; sym_kDefault; sym_kNodefault; sym_kStored; sym_kIndex;
   sym_kDispId; sym_kAnd; sym_kAs; sym_kDiv; sym_kIn; sym_kIs; sym_kMod; sym_kNot; sym_kOf;
   sym_kOr; sym_kShl; sym_kShr; sym_kXor; anon_sym_SEMI; anon_sym_LBRACK; sym_kEq; sym_kNeq;
   sym_kLte; sym_kGte; sym_kAdd; sym_kSub; sym_kMul; sym_kHat].

Definition syms_290 : list ts_symbol :=
  [sym_kRead; sym_kWrite; sym_kImplements; sym_kDefault; sym_kNodefault; sym_kStored; sym_kIndex;
   sym_kDispId; sym_kOf; anon_sym_SEMI; anon_sym_LBRACK; anon_sym_DOT].

Definition syms_291 : list ts_symbol :=
  [sym_kRead; sym_kWrite; sym_kImplements; sym_kDefault; sym_kNodefault; sym_kStored; sym_kIndex;
   sym_kDispId; sym_kIn; sym_kIs; sym_kNot; sym_kOr; sym_kXor; anon_sym_SEMI; anon_sym_COMMA;
   anon_sym_LBRACK; anon_sym_DOT; sym_kEq; sym_kNeq; sym_kLte; sym_kGte; sym_kAdd; sym_kSub].

Definition syms_292 : list ts_symbol :=
  [sym_kRead; sym_kWrite; sym_kImplements; sym_kDefault; sym_kNodefault; sym_kStored; sym_kIndex;
   sym_kDispId; sym_kAnd; sym_kAs; sym_kDiv; sym_kIn; sym_kIs; sym_kMod; sym_kNot; sym_kOr;
   sym_kShl; sym_kShr; sym_kXor; anon_sym_SEMI; anon_sym_COMMA; anon_sym_LBRACK; anon_sym_DOT;
   sym_kEq; sym_kNeq; sym_kLte; sym_kGte; sym_kAdd; sym_kSub; sym_kMul].

Definition syms_293 : list ts_symbol :=
  [sym_kOtherwise; sym_kAnd; sym_kAs; sym_kDiv; sym_kElse; sym_kEnd; sym_kIn; sym_kIs; sym_kMod;
   sym_kNot; sym_kOr; sym_kShl; sym_kShr; sym_kXor; anon_sym_SEMI; sym_kEq; sym_kNeq; sym_kLte;
   sym_kGte; sym_kHat; sym_kAssign; sym_kAssignAdd; sym_kAssignSub; sym_kAssignMul;
   sym_kAssignDiv].

Definition syms_294 : list ts_symbol :=
  [sym__literalStringMultiline; sym_kAnd; sym_kAs; sym_kDiv; sym_kElse; sym_kIn; sym_kIs;
   sym_kMod; sym_kNot; sym_kOr; sym_kShl; sym_kShr; sym_kXor; anon_sym_SEMI; anon_sym_LBRACK;
   aux_sym__literalString_token1; anon_sym_POUND; anon_sym_DOT; sym_kEq; sym_kNeq; sym_kLte;
   sym_kGte; sym_kHat; sym_kAssign; sym_kAssignAdd; sym_kAssignSub; sym_kAssignMul;
   sym_kAssignDiv].

Definition syms_295 : list ts_symbol :=
  [sym_kOtherwise; sym_kAnd; sym_kAs; sym_kDiv; sym_kElse; sym_kEnd; sym_kIn; sym_kIs; sym_kMod;
   sym_kNot; sym_kOr; sym_kShl; sym_kShr; sym_kXor; anon_sym_SEMI; anon_sym_LBRACK; anon_sym_DOT;
   sym_kEq; sym_kNeq; sym_kLte; sym_kGte; sym_kAssign; sym_kAssignAdd; sym_kAssignSub;
   sym_kAssignMul; sym_kAssignDiv].

Definition syms_296 : list ts_symbol :=
  [sym_kOtherwise; sym_kElse; sym_kEnd; sym_kIn; sym_kIs; sym_kNot; anon_sym_SEMI;
   anon_sym_LBRACK; anon_sym_DOT; sym_kEq; sym_kNeq; sym_kLte; sym_kGte; sym_kAssign;
   sym_kAssignAdd; sym_kAssignSub; sym_kAssignMul; sym_kAssignDiv].

Definition syms_297 : list ts_symbol :=
  [sym_kOtherwise; sym_kElse; sym_kEnd; sym_kIn; sym_kIs; sym_kNot; sym_kOr; sym_kXor;
   anon_sym_SEMI; anon_sym_LBRACK; anon_sym_DOT; sym_kEq; sym_kNeq; sym_kLte; sym_kGte;
   sym_kAssign; sym_kAssignAdd; sym_kAssignSub; sym_kAssignMul; sym_kAssignDiv].

Definition syms_298 : list ts_symbol :=
  [anon_sym_COMMA; anon_sym_DOT].

Definition syms_299 : list ts_symbol :=
  [sym_kRead; sym_kWrite; sym_kImplements; sym_kDefault; sym_kNodefault; sym_kStored; sym_kIndex;
   sym_kDispId; sym_kAnd; sym_kAs; sym_kDiv; sym_kIn; sym_kIs; sym_kMod; sym_kNot; sym_kOr;
   sym_kShl; sym_kShr; sym_kXor; anon_sym_SEMI; anon_sym_LBRACK; sym_kEq; sym_kNeq; sym_kLte;
   sym_kGte; sym_kAdd; sym_kSub; sym_kMul; sym_kHat].

Definition syms_300 : list ts_symbol :=
  [sym_kOtherwise; sym_kElse; sym_kEnd; anon_sym_SEMI; anon_sym_LBRACK; anon_sym_DOT;
   sym_kAssign; sym_kAssignAdd; sym_kAssignSub; sym_kAssignMul; sym_kAssignDiv].

Definition syms_301 : list ts_symbol :=
  [sym_kOtherwise; sym_kAnd; sym_kAs; sym_kDiv; sym_kElse; sym_kEnd; sym_kIn; sym_kIs; sym_kMod;
   sym_kNot; sym_kOr; sym_kShl; sym_kShr; sym_kXor; anon_sym_SEMI; anon_sym_LBRACK; sym_kEq;
   sym_kNeq; sym_kLte; sym_kGte; sym_kHat; sym_kAssign; sym_kAssignAdd; sym_kAssignSub;
   sym_kAssignMul; sym_kAssignDiv].

Definition syms_302 : list ts_symbol :=
  [sym_kAnd; sym_kAs; sym_kDiv; sym_kElse; sym_kExcept; sym_kFinally; sym_kIn; sym_kIs; sym_kMod;
   sym_kNot; sym_kOr; sym_kShl; sym_kShr; sym_kXor; anon_sym_SEMI; sym_kEq; sym_kNeq; sym_kLte;
   sym_kGte; sym_kHat; sym_kAssign; sym_kAssignAdd; sym_kAssignSub; sym_kAssignMul;
   sym_kAssignDiv].

Definition syms_303 : list ts_symbol :=
  [sym_kAnd; sym_kAs; sym_kDiv; sym_kElse; sym_kExcept; sym_kFinally; sym_kIn; sym_kIs; sym_kMod;
   sym_kNot; sym_kOr; sym_kShl; sym_kShr; sym_kXor; anon_sym_SEMI; anon_sym_LBRACK; anon_sym_DOT;
   sym_kEq; sym_kNeq; sym_kLte; sym_kGte; sym_kAssign; sym_kAssignAdd; sym_kAssignSub;
   sym_kAssignMul; sym_kAssignDiv].

Definition syms_304 : list ts_symbol :=
  [sym_kElse; sym_kExcept; sym_kFinally; sym_kIn; sym_kIs; sym_kNot; anon_sym_SEMI;
   anon_sym_LBRACK; anon_sym_DOT; sym_kEq; sym_kNeq; sym_kLte; sym_kGte; sym_kAssign;
   sym_kAssignAdd; sym_kAssignSub; sym_kAssignMul; sym_kAssignDiv].

Definition syms_305 : list ts_symbol :=
  [sym_kElse; sym_kExcept; sym_kFinally; sym_kIn; sym_kIs; sym_kNot; sym_kOr; sym_kXor;
   anon_sym_SEMI; anon_sym_LBRACK; anon_sym_DOT; sym_kEq; sym_kNeq; sym_kLte; sym_kGte;
   sym_kAssign; sym_kAssignAdd; sym_kAssignSub; sym_kAssignMul; sym_kAssignDiv].

Definition syms_306 : list ts_symbol :=
  [sym_kElse; sym_kExcept; sym_kFinally; anon_sym_SEMI; anon_sym_LBRACK; anon_sym_DOT;
   sym_kAssign; sym_kAssignAdd; sym_kAssignSub; sym_kAssignMul; sym_kAssignDiv].

Definition syms_307 : list ts_symbol :=
  [sym_kAnd; sym_kAs; sym_kDiv; sym_kElse; sym_kExcept; sym_kFinally; sym_kIn; sym_kIs; sym_kMod;
   sym_kNot; sym_kOr; sym_kShl; sym_kShr; sym_kXor; anon_sym_SEMI; anon_sym_LBRACK; sym_kEq;
   sym_kNeq; sym_kLte; sym_kGte; sym_kHat; sym_kAssign; sym_kAssignAdd; sym_kAssignSub;
   sym_kAssignMul; sym_kAssignDiv].

Definition syms_308 : list ts_symbol :=
  [sym__literalStringMultiline; sym_kRaiseAt; sym_kAnd; sym_kAs; sym_kDiv; sym_kEnd;
   sym_kFinalization; sym_kImplementation; sym_kIn; sym_kInitialization; sym_kInterface; sym_kIs;
   sym_kMod; sym_kNot; sym_kOr; sym_kShl; sym_kShr; sym_kXor; anon_sym_SEMI; anon_sym_LBRACK;
   aux_sym__literalString_token1; anon_sym_POUND; anon_sym_DOT; sym_kEq; sym_kNeq; sym_kLte;
   sym_kGte; sym_kAdd; sym_kSub; sym_kMul; sym_kHat].

Definition syms_309 : list ts_symbol :=
  [sym__literalStringMultiline; sym_kAnd; sym_kAs; sym_kDiv; sym_kIn; sym_kIs; sym_kMod;
   sym_kNot; sym_kOr; sym_kShl; sym_kShr; sym_kUntil; sym_kXor; anon_sym_SEMI; anon_sym_LBRACK;
   aux_sym__literalString_token1; anon_sym_POUND; anon_sym_DOT; sym_kEq; sym_kNeq; sym_kLte;
   sym_kGte; sym_kHat; sym_kAssign; sym_kAssignAdd; sym_kAssignSub; sym_kAssignMul;
   sym_kAssignDiv].

Definition syms_310 : list ts_symbol :=
  [sym_kRead; sym_kWrite; sym_kImplements; sym_kDefault; sym_kNodefault; sym_kStored; sym_kIndex;
   sym_kDispId; sym_kAnd; sym_kAs; sym_kDiv; sym_kIn; sym_kIs; sym_kMod; sym_kNot; sym_kOr;
   sym_kShl; sym_kShr; sym_kXor; anon_sym_SEMI; anon_sym_LBRACK; anon_sym_DOT; sym_kEq; sym_kNeq;
   sym_kLte; sym_kGte; sym_kAdd; sym_kSub; sym_kMul; sym_kHat].

Definition syms_311 : list ts_symbol :=
  [sym__literalStringMultiline; sym_kAbsolute; sym_kAnd; sym_kAs; sym_kDiv; sym_kIn; sym_kIs;
   sym_kMod; sym_kNot; sym_kOr; sym_kShl; sym_kShr; sym_kXor; anon_sym_SEMI; anon_sym_LBRACK;
   aux_sym__literalString_token1; anon_sym_POUND; anon_sym_DOT; sym_kEq; sym_kNeq; sym_kLte;
   sym_kGte; sym_kHat; sym_kAssign; sym_kAssignAdd; sym_kAssignSub; sym_kAssignMul;
   sym_kAssignDiv].

Definition syms_312 : list ts_symbol :=
  [sym__literalStringMultiline; sym_kAnd; sym_kAs; sym_kDiv; sym_kElse; sym_kEnd;
   sym_kFinalization; sym_kImplementation; sym_kIn; sym_kInitialization; sym_kInterface; sym_kIs;
   sym_kMod; sym_kNot; sym_kOr; sym_kShl; sym_kShr; sym_kXor; anon_sym_SEMI; anon_sym_LBRACK;
   aux_sym__literalString_token1; anon_sym_POUND; anon_sym_DOT; sym_kEq; sym_kNeq; sym_kLte;
   sym_kGte; sym_kAdd; sym_kSub; sym_kMul; sym_kHat].

Definition syms_313 : list ts_symbol :=
  [sym_kAssign; sym_kAssignAdd; sym_kAssignSub; sym_kAssignMul; sym_kAssignDiv].

Definition syms_314 : list ts_symbol :=
  [sym__literalStringMultiline; sym_kAnd; sym_kAs; sym_kDiv; sym_kEnd; sym_kIn; sym_kIs;
   sym_kMod; sym_kNot; sym_kOr; sym_kShl; sym_kShr; sym_kXor; anon_sym_SEMI; anon_sym_LBRACK;
   aux_sym__literalString_token1; anon_sym_POUND; anon_sym_DOT; sym_kEq; sym_kNeq; sym_kLte;
   sym_kGte; sym_kHat; sym_kAssign; sym_kAssignAdd; sym_kAssignSub; sym_kAssignMul;
   sym_kAssignDiv].

Definition syms_315 : list ts_symbol :=
  [sym_kRead; sym_kWrite; sym_kImplements; sym_kDefault; sym_kNodefault; sym_kStored; sym_kIndex;
   sym_kDispId; sym_kAnd; sym_kAs; sym_kDiv; sym_kIn; sym_kIs; sym_kMod; sym_kNot; sym_kOr;
   sym_kShl; sym_kShr; sym_kXor; anon_sym_SEMI; sym_kEq; sym_kNeq; sym_kLte; sym_kGte; sym_kAdd;
   sym_kSub; sym_kMul; sym_kHat].

Definition syms_316 : list ts_symbol :=
  [sym_kRead; sym_kWrite; sym_kImplements; sym_kDefault; sym_kNodefault; sym_kStored; sym_kIndex;
   sym_kDispId; sym_kAnd; sym_kAs; sym_kDiv; sym_kIn; sym_kIs; sym_kMod; sym_kNot; sym_kOr;
   sym_kShl; sym_kShr; sym_kXor; anon_sym_SEMI; anon_sym_LBRACK; anon_sym_DOT; sym_kEq; sym_kNeq;
   sym_kLte; sym_kGte; sym_kAdd; sym_kSub; sym_kMul].

Definition syms_317 : list ts_symbol :=
  [sym_kRead; sym_kWrite; sym_kImplements; sym_kDefault; sym_kNodefault; sym_kStored; sym_kIndex;
   sym_kDispId; sym_kIn; sym_kIs; sym_kNot; anon_sym_SEMI; anon_sym_LBRACK; anon_sym_DOT;
   sym_kEq; sym_kNeq; sym_kLte; sym_kGte].

Definition syms_318 : list ts_symbol :=
  [sym_kRead; sym_kWrite; sym_kImplements; sym_kDefault; sym_kNodefault; sym_kStored; sym_kIndex;
   sym_kDispId; sym_kIn; sym_kIs; sym_kNot; sym_kOr; sym_kXor; anon_sym_SEMI; anon_sym_LBRACK;
   anon_sym_DOT; sym_kEq; sym_kNeq; sym_kLte; sym_kGte; sym_kAdd; sym_kSub].

Definition syms_319 : list ts_symbol :=
  [sym_kRead; sym_kWrite; sym_kImplements; sym_kDefault; sym_kNodefault; sym_kStored; sym_kIndex;
   sym_kDispId; anon_sym_SEMI; anon_sym_LBRACK; anon_sym_DOT].

Definition syms_320 : list ts_symbol :=
  [sym_ppBlock; sym_declType; aux_sym_declTypes_repeat1].

Definition syms_321 : list ts_symbol :=
  [sym_kOperator; sym_kPublished; sym_kPublic; sym_kProtected; sym_kPrivate; sym_kStrict;
   sym_kRequired; sym_kOptional; sym_kCase; sym_kClass; sym_kConst; sym_kConstructor;
   sym_kDestructor; sym_kEnd; sym_kFunction; sym_kProcedure; sym_kProperty; sym_kResourcestring;
   sym_kThreadvar; sym_kType; sym_kVar].

Definition syms_322 : list ts_symbol :=
  [sym_kElse; sym_kIn; sym_kIs; sym_kNot; sym_kUntil; anon_sym_SEMI; anon_sym_LBRACK;
   anon_sym_DOT; sym_kEq; sym_kNeq; sym_kLte; sym_kGte; sym_kAssign; sym_kAssignAdd;
   sym_kAssignSub; sym_kAssignMul; sym_kAssignDiv].

Definition syms_323 : list ts_symbol :=
  [sym_kElse; sym_kUntil; anon_sym_SEMI; anon_sym_LBRACK; anon_sym_DOT; sym_kAssign;
   sym_kAssignAdd; sym_kAssignSub; sym_kAssignMul; sym_kAssignDiv].

Definition syms_324 : list ts_symbol :=
  [sym_kAnd; sym_kAs; sym_kDiv; sym_kElse; sym_kIn; sym_kIs; sym_kMod; sym_kNot; sym_kOr;
   sym_kShl; sym_kShr; sym_kUntil; sym_kXor; anon_sym_SEMI; anon_sym_LBRACK; sym_kEq; sym_kNeq;
   sym_kLte; sym_kGte; sym_kHat; sym_kAssign; sym_kAssignAdd; sym_kAssignSub; sym_kAssignMul;
   sym_kAssignDiv].

Definition syms_325 : list ts_symbol :=
  [sym_kAnd; sym_kAs; sym_kDiv; sym_kExcept; sym_kFinally; sym_kIn; sym_kIs; sym_kMod; sym_kNot;
   sym_kOr; sym_kShl; sym_kShr; sym_kXor; anon_sym_SEMI; sym_kEq; sym_kNeq; sym_kLte; sym_kGte;
   sym_kHat; sym_kAssign; sym_kAssignAdd; sym_kAssignSub; sym_kAssignMul; sym_kAssignDiv].

Definition syms_326 : list ts_symbol :=
  [sym__literalStringMultiline; sym_kAnd; sym_kAs; sym_kDiv; sym_kEnd; sym_kFinalization;
   sym_kImplementation; sym_kIn; sym_kInitialization; sym_kInterface; sym_kIs; sym_kMod;
   sym_kNot; sym_kOr; sym_kShl; sym_kShr; sym_kXor; anon_sym_SEMI; anon_sym_LBRACK;
   aux_sym__literalString_token1; anon_sym_POUND; anon_sym_DOT; sym_kEq; sym_kNeq; sym_kLte;
   sym_kGte; sym_kAdd; sym_kSub; sym_kMul; sym_kHat].

Definition syms_327 : list ts_symbol :=
  [sym__literalStringMultiline; sym_kAnd; sym_kAs; sym_kDiv; sym_kIn; sym_kIs; sym_kMod;
   sym_kNot; sym_kOr; sym_kShl; sym_kShr; sym_kXor; anon_sym_SEMI; anon_sym_LBRACK;
   aux_sym__literalString_token1; anon_sym_POUND; anon_sym_DOT; sym_kEq; sym_kNeq; sym_kLte;
   sym_kGte; sym_kHat; sym_kAssign; sym_kAssignAdd; sym_kAssignSub; sym_kAssignMul;
   sym_kAssignDiv].

Definition syms_328 : list ts_symbol :=
  [sym_kRaiseAt; sym_kAnd; sym_kAs; sym_kDiv; sym_kElse; sym_kEnd; sym_kFinalization;
   sym_kImplementation; sym_kIn; sym_kInitialization; sym_kInterface; sym_kIs; sym_kMod;
   sym_kNot; sym_kOr; sym_kShl; sym_kShr; sym_kXor; anon_sym_SEMI; sym_kEq; sym_kNeq; sym_kLte;
   sym_kGte; sym_kAdd; sym_kSub; sym_kMul; sym_kHat].

Definition syms_329 : list ts_symbol :=
  [sym_kRaiseAt; sym_kAnd; sym_kAs; sym_kDiv; sym_kElse; sym_kEnd; sym_kFinalization;
   sym_kImplementation; sym_kIn; sym_kInitialization; sym_kInterface; sym_kIs; sym_kMod;
   sym_kNot; sym_kOr; sym_kShl; sym_kShr; sym_kXor; anon_sym_SEMI; anon_sym_LBRACK; anon_sym_DOT;
   sym_kEq; sym_kNeq; sym_kLte; sym_kGte; sym_kAdd; sym_kSub; sym_kMul].

Definition syms_330 : list ts_symbol :=
  [sym_kRaiseAt; sym_kElse; sym_kEnd; sym_kFinalization; sym_kImplementation; sym_kIn;
   sym_kInitialization; sym_kInterface; sym_kIs; sym_kNot; anon_sym_SEMI; anon_sym_LBRACK;
   anon_sym_DOT; sym_kEq; sym_kNeq; sym_kLte; sym_kGte].

Definition syms_331 : list ts_symbol :=
  [sym_kRaiseAt; sym_kElse; sym_kEnd; sym_kFinalization; sym_kImplementation; sym_kIn;
   sym_kInitialization; sym_kInterface; sym_kIs; sym_kNot; sym_kOr; sym_kXor; anon_sym_SEMI;
   anon_sym_LBRACK; anon_sym_DOT; sym_kEq; sym_kNeq; sym_kLte; sym_kGte; sym_kAdd; sym_kSub].

Definition syms_332 : list ts_symbol :=
  [sym_kRaiseAt; sym_kElse; sym_kEnd; sym_kFinalization; sym_kImplementation;
   sym_kInitialization; sym_kInterface; anon_sym_SEMI; anon_sym_LBRACK; anon_sym_DOT].

Definition syms_333 : list ts_symbol :=
  [anon_sym_LPAREN; sym_kGt; sym_kAdd; sym_kSub; sym_kMul; sym_kFdiv].

Definition syms_334 : list ts_symbol :=
  [sym_kAnd; sym_kAs; sym_kDiv; sym_kIn; sym_kIs; sym_kMod; sym_kNot; sym_kOr; sym_kShl;
   sym_kShr; sym_kXor; anon_sym_SEMI; anon_sym_LBRACK; sym_kNeq; sym_kLte; sym_kGte; sym_kHat;
   sym_kAssign; sym_kAssignAdd; sym_kAssignSub; sym_kAssignMul; sym_kAssignDiv].

Definition syms_335 : list ts_symbol :=
  [sym_kRaiseAt; sym_kAnd; sym_kAs; sym_kDiv; sym_kElse; sym_kEnd; sym_kFinalization;
   sym_kImplementation; sym_kIn; sym_kInitialization; sym_kInterface; sym_kIs; sym_kMod;
   sym_kNot; sym_kOr; sym_kShl; sym_kShr; sym_kXor; anon_sym_SEMI; anon_sym_LBRACK; sym_kEq;
   sym_kNeq; sym_kLte; sym_kGte; sym_kAdd; sym_kSub; sym_kMul; sym_kHat].

Definition syms_336 : list ts_symbol :=
  [sym_kAnd; sym_kAs; sym_kDiv; sym_kExcept; sym_kFinally; sym_kIn; sym_kIs; sym_kMod; sym_kNot;
   sym_kOr; sym_kShl; sym_kShr; sym_kXor; anon_sym_SEMI; anon_sym_LBRACK; anon_sym_DOT; sym_kEq;
   sym_kNeq; sym_kLte; sym_kGte; sym_kAssign; sym_kAssignAdd; sym_kAssignSub; sym_kAssignMul;
   sym_kAssignDiv].

Definition syms_337 : list ts_symbol :=
  [sym_kExcept; sym_kFinally; sym_kIn; sym_kIs; sym_kNot; anon_sym_SEMI; anon_sym_LBRACK;
   anon_sym_DOT; sym_kEq; sym_kNeq; sym_kLte; sym_kGte; sym_kAssign; sym_kAssignAdd;
   sym_kAssignSub; sym_kAssignMul; sym_kAssignDiv].

Definition syms_338 : list ts_symbol :=
  [sym_kExcept; sym_kFinally; sym_kIn; sym_kIs; sym_kNot; sym_kOr; sym_kXor; anon_sym_SEMI;
   anon_sym_LBRACK; anon_sym_DOT; sym_kEq; sym_kNeq; sym_kLte; sym_kGte; sym_kAssign;
   sym_kAssignAdd; sym_kAssignSub; sym_kAssignMul; sym_kAssignDiv].

Definition syms_339 : list ts_symbol :=
  [sym_kAnd; sym_kAs; sym_kDiv; sym_kExcept; sym_kFinally; sym_kIn; sym_kIs; sym_kMod; sym_kNot;
   sym_kOr; sym_kShl; sym_kShr; sym_kXor; anon_sym_SEMI; anon_sym_LBRACK; sym_kEq; sym_kNeq;
   sym_kLte; sym_kGte; sym_kHat; sym_kAssign; sym_kAssignAdd; sym_kAssignSub; sym_kAssignMul;
   sym_kAssignDiv].

Definition syms_340 : list ts_symbol :=
  [sym_kExcept; sym_kFinally; anon_sym_SEMI; anon_sym_LBRACK; anon_sym_DOT; sym_kAssign;
   sym_kAssignAdd; sym_kAssignSub; sym_kAssignMul; sym_kAssignDiv].

Definition syms_341 : list ts_symbol :=
  [sym_kAnd; sym_kAs; sym_kDiv; sym_kElse; sym_kIn; sym_kIs; sym_kMod; sym_kNot; sym_kOr;
   sym_kShl; sym_kShr; sym_kUntil; sym_kXor; anon_sym_SEMI; sym_kEq; sym_kNeq; sym_kLte;
   sym_kGte; sym_kHat; sym_kAssign; sym_kAssignAdd; sym_kAssignSub; sym_kAssignMul;
   sym_kAssignDiv].

Definition syms_342 : list ts_symbol :=
  [sym_kAnd; sym_kAs; sym_kDiv; sym_kElse; sym_kIn; sym_kIs; sym_kMod; sym_kNot; sym_kOr;
   sym_kShl; sym_kShr; sym_kUntil; sym_kXor; anon_sym_SEMI; anon_sym_LBRACK; anon_sym_DOT;
   sym_kEq; sym_kNeq; sym_kLte; sym_kGte; sym_kAssign; sym_kAssignAdd; sym_kAssignSub;
   sym_kAssignMul; sym_kAssignDiv].

Definition syms_343 : list ts_symbol :=
  [sym_kAnd; sym_kAs; sym_kDiv; sym_kElse; sym_kEnd; sym_kIn; sym_kIs; sym_kMod; sym_kNot;
   sym_kOr; sym_kShl; sym_kShr; sym_kXor; anon_sym_SEMI; sym_kEq; sym_kNeq; sym_kLte; sym_kGte;
   sym_kHat; sym_kAssign; sym_kAssignAdd; sym_kAssignSub; sym_kAssignMul; sym_kAssignDiv].

Definition syms_344 : list ts_symbol :=
  [sym_kAnd; sym_kAs; sym_kDiv; sym_kElse; sym_kEnd; sym_kIn; sym_kIs; sym_kMod; sym_kNot;
   sym_kOr; sym_kShl; sym_kShr; sym_kXor; anon_sym_SEMI; anon_sym_LBRACK; anon_sym_DOT; sym_kEq;
   sym_kNeq; sym_kLte; sym_kGte; sym_kAssign; sym_kAssignAdd; sym_kAssignSub; sym_kAssignMul;
   sym_kAssignDiv].

Definition syms_345 : list ts_symbol :=
  [sym_kElse; sym_kEnd; sym_kIn; sym_kIs; sym_kNot; anon_sym_SEMI; anon_sym_LBRACK; anon_sym_DOT;
   sym_kEq; sym_kNeq; sym_kLte; sym_kGte; sym_kAssign; sym_kAssignAdd; sym_kAssignSub;
   sym_kAssignMul; sym_kAssignDiv].

Definition syms_346 : list ts_symbol :=
  [sym_kElse; sym_kEnd; sym_kIn; sym_kIs; sym_kNot; sym_kOr; sym_kXor; anon_sym_SEMI;
   anon_sym_LBRACK; anon_sym_DOT; sym_kEq; sym_kNeq; sym_kLte; sym_kGte; sym_kAssign;
   sym_kAssignAdd; sym_kAssignSub; sym_kAssignMul; sym_kAssignDiv].

Definition syms_347 : list ts_symbol :=
  [sym_kElse; sym_kEnd; anon_sym_SEMI; anon_sym_LBRACK; anon_sym_DOT; sym_kAssign;
   sym_kAssignAdd; sym_kAssignSub; sym_kAssignMul; sym_kAssignDiv].

Definition syms_348 : list ts_symbol :=
  [sym_kElse; sym_kIn; sym_kIs; sym_kNot; sym_kOr; sym_kUntil; sym_kXor; anon_sym_SEMI;
   anon_sym_LBRACK; anon_sym_DOT; sym_kEq; sym_kNeq; sym_kLte; sym_kGte; sym_kAssign;
   sym_kAssignAdd; sym_kAssignSub; sym_kAssignMul; sym_kAssignDiv].

Definition syms_349 : list ts_symbol :=
  [sym__literalStringMultiline; sym_kAnd; sym_kAs; sym_kDiv; sym_kDo; sym_kIn; sym_kIs; sym_kMod;
   sym_kNot; sym_kOr; sym_kShl; sym_kShr; sym_kXor; anon_sym_LBRACK;
   aux_sym__literalString_token1; anon_sym_POUND; anon_sym_DOT; sym_kEq; sym_kNeq; sym_kLte;
   sym_kGte; sym_kHat; sym_kAssign; sym_kAssignAdd; sym_kAssignSub; sym_kAssignMul;
   sym_kAssignDiv].

Definition syms_350 : list ts_symbol :=
  [sym_kAnd; sym_kAs; sym_kDiv; sym_kElse; sym_kEnd; sym_kIn; sym_kIs; sym_kMod; sym_kNot;
   sym_kOr; sym_kShl; sym_kShr; sym_kXor; anon_sym_SEMI; anon_sym_LBRACK; sym_kEq; sym_kNeq;
   sym_kLte; sym_kGte; sym_kHat; sym_kAssign; sym_kAssignAdd; sym_kAssignSub; sym_kAssignMul;
   sym_kAssignDiv].

Definition syms_351 : list ts_symbol :=
  [sym_kOperator; sym_kBegin; sym_kClass; sym_kConst; sym_kConstructor; sym_kDestructor;
   sym_kEnd; sym_kExports; sym_kFinalization; sym_kFunction; sym_kImplementation;
   sym_kInitialization; sym_kInterface; sym_kLabel; sym_kProcedure; sym_kResourcestring;
   sym_kThreadvar; sym_kType; sym_kUses; sym_kVar].

Definition syms_352 : list ts_symbol :=
  [sym_kAnd; sym_kAs; sym_kDiv; sym_kElse; sym_kIn; sym_kIs; sym_kMod; sym_kNot; sym_kOr;
   sym_kShl; sym_kShr; sym_kXor; anon_sym_SEMI; anon_sym_LBRACK; sym_kEq; sym_kNeq; sym_kLte;
   sym_kGte; sym_kHat; sym_kAssign; sym_kAssignAdd; sym_kAssignSub; sym_kAssignMul;
   sym_kAssignDiv].

Definition syms_353 : list ts_symbol :=
  [sym_kAnd; sym_kAs; sym_kDiv; sym_kElse; sym_kIn; sym_kIs; sym_kMod; sym_kNot; sym_kOr;
   sym_kShl; sym_kShr; sym_kXor; anon_sym_SEMI; sym_kEq; sym_kNeq; sym_kLte; sym_kGte; sym_kHat;
   sym_kAssign; sym_kAssignAdd; sym_kAssignSub; sym_kAssignMul; sym_kAssignDiv].

Definition syms_354 : list ts_symbol :=
  [sym_kRaiseAt; sym_kAnd; sym_kAs; sym_kDiv; sym_kEnd; sym_kFinalization; sym_kImplementation;
   sym_kIn; sym_kInitialization; sym_kInterface; sym_kIs; sym_kMod; sym_kNot; sym_kOr; sym_kShl;
   sym_kShr; sym_kXor; anon_sym_SEMI; sym_kEq; sym_kNeq; sym_kLte; sym_kGte; sym_kAdd; sym_kSub;
   sym_kMul; sym_kHat].

Definition syms_355 : list ts_symbol :=
  [sym_kRaiseAt; sym_kAnd; sym_kAs; sym_kDiv; sym_kEnd; sym_kFinalization; sym_kImplementation;
   sym_kIn; sym_kInitialization; sym_kInterface; sym_kIs; sym_kMod; sym_kNot; sym_kOr; sym_kShl;
   sym_kShr; sym_kXor; anon_sym_SEMI; anon_sym_LBRACK; anon_sym_DOT; sym_kEq; sym_kNeq; sym_kLte;
   sym_kGte; sym_kAdd; sym_kSub; sym_kMul].

Definition syms_356 : list ts_symbol :=
  [sym_kElse; sym_kIn; sym_kIs; sym_kNot; anon_sym_SEMI; anon_sym_LBRACK; anon_sym_DOT; sym_kEq;
   sym_kNeq; sym_kLte; sym_kGte; sym_kAssign; sym_kAssignAdd; sym_kAssignSub; sym_kAssignMul;
   sym_kAssignDiv].

Definition syms_357 : list ts_symbol :=
  [sym_kRaiseAt; sym_kEnd; sym_kFinalization; sym_kImplementation; sym_kIn; sym_kInitialization;
   sym_kInterface; sym_kIs; sym_kNot; anon_sym_SEMI; anon_sym_LBRACK; anon_sym_DOT; sym_kEq;
   sym_kNeq; sym_kLte; sym_kGte].

Definition syms_358 : list ts_symbol :=
  [sym_kElse; anon_sym_SEMI; anon_sym_LBRACK; anon_sym_DOT; sym_kAssign; sym_kAssignAdd;
   sym_kAssignSub; sym_kAssignMul; sym_kAssignDiv].

Definition syms_359 : list ts_symbol :=
  [sym_kRaiseAt; sym_kEnd; sym_kFinalization; sym_kImplementation; sym_kIn; sym_kInitialization;
   sym_kInterface; sym_kIs; sym_kNot; sym_kOr; sym_kXor; anon_sym_SEMI; anon_sym_LBRACK;
   anon_sym_DOT; sym_kEq; sym_kNeq; sym_kLte; sym_kGte; sym_kAdd; sym_kSub].

Definition syms_360 : list ts_symbol :=
  [sym_kAnd; sym_kAs; sym_kDiv; sym_kElse; sym_kIn; sym_kIs; sym_kMod; sym_kNot; sym_kOr;
   sym_kShl; sym_kShr; sym_kXor; anon_sym_SEMI; anon_sym_LBRACK; anon_sym_DOT; sym_kEq; sym_kNeq;
   sym_kLte; sym_kGte; sym_kAssign; sym_kAssignAdd; sym_kAssignSub; sym_kAssignMul;
   sym_kAssignDiv].

Definition syms_361 : list ts_symbol :=
  [sym_kRaiseAt; sym_kEnd; sym_kFinalization; sym_kImplementation; sym_kInitialization;
   sym_kInterface; anon_sym_SEMI; anon_sym_LBRACK; anon_sym_DOT].

Definition syms_362 : list ts_symbol :=
  [sym_kEnd; sym_kIn; sym_kIs; sym_kNot; anon_sym_SEMI; anon_sym_LBRACK; anon_sym_DOT; sym_kEq;
   sym_kNeq; sym_kLte; sym_kGte; sym_kAssign; sym_kAssignAdd; sym_kAssignSub; sym_kAssignMul;
   sym_kAssignDiv].

Definition syms_363 : list ts_symbol :=
  [sym_kRaiseAt; sym_kAnd; sym_kAs; sym_kDiv; sym_kEnd; sym_kFinalization; sym_kImplementation;
   sym_kIn; sym_kInitialization; sym_kInterface; sym_kIs; sym_kMod; sym_kNot; sym_kOr; sym_kShl;
   sym_kShr; sym_kXor; anon_sym_SEMI; anon_sym_LBRACK; sym_kEq; sym_kNeq; sym_kLte; sym_kGte;
   sym_kAdd; sym_kSub; sym_kMul; sym_kHat].

Definition syms_364 : list ts_symbol :=
  [sym_kAnd; sym_kAs; sym_kDiv; sym_kElse; sym_kEnd; sym_kFinalization; sym_kImplementation;
   sym_kIn; sym_kInitialization; sym_kInterface; sym_kIs; sym_kMod; sym_kNot; sym_kOr; sym_kShl;
   sym_kShr; sym_kXor; anon_sym_SEMI; sym_kEq; sym_kNeq; sym_kLte; sym_kGte; sym_kAdd; sym_kSub;
   sym_kMul; sym_kHat].

Definition syms_365 : list ts_symbol :=
  [sym_kUntil; anon_sym_SEMI; anon_sym_LBRACK; anon_sym_DOT; sym_kAssign; sym_kAssignAdd;
   sym_kAssignSub; sym_kAssignMul; sym_kAssignDiv].

Definition syms_366 : list ts_symbol :=
  [sym_kOperator; sym_kClass; sym_kConst; sym_kConstructor; sym_kDestructor; sym_kEnd;
   sym_kExports; sym_kFinalization; sym_kFunction; sym_kImplementation; sym_kInitialization;
   sym_kInterface; sym_kLabel; sym_kProcedure; sym_kProperty; sym_kResourcestring;
   sym_kThreadvar; sym_kType; sym_kUses; sym_kVar].

Definition syms_367 : list ts_symbol :=
  [sym_kAnd; sym_kAs; sym_kDiv; sym_kElse; sym_kEnd; sym_kFinalization; sym_kImplementation;
   sym_kIn; sym_kInitialization; sym_kInterface; sym_kIs; sym_kMod; sym_kNot; sym_kOr; sym_kShl;
   sym_kShr; sym_kXor; anon_sym_SEMI; anon_sym_LBRACK; anon_sym_DOT; sym_kEq; sym_kNeq; sym_kLte;
   sym_kGte; sym_kAdd; sym_kSub; sym_kMul].

Definition syms_368 : list ts_symbol :=
  [sym_kElse; sym_kEnd; sym_kFinalization; sym_kImplementation; sym_kIn; sym_kInitialization;
   sym_kInterface; sym_kIs; sym_kNot; anon_sym_SEMI; anon_sym_LBRACK; anon_sym_DOT; sym_kEq;
   sym_kNeq; sym_kLte; sym_kGte].

Definition syms_369 : list ts_symbol :=
  [sym_kElse; sym_kEnd; sym_kFinalization; sym_kImplementation; sym_kIn; sym_kInitialization;
   sym_kInterface; sym_kIs; sym_kNot; sym_kOr; sym_kXor; anon_sym_SEMI; anon_sym_LBRACK;
   anon_sym_DOT; sym_kEq; sym_kNeq; sym_kLte; sym_kGte; sym_kAdd; sym_kSub].

Definition syms_370 : list ts_symbol :=
  [sym_kElse; sym_kEnd; sym_kFinalization; sym_kImplementation; sym_kInitialization;
   sym_kInterface; anon_sym_SEMI; anon_sym_LBRACK; anon_sym_DOT].

Definition syms_371 : list ts_symbol :=
  [sym__literalStringMultiline; sym_kOtherwise; sym_kRaiseAt; sym_kAnd; sym_kAs; sym_kDiv;
   sym_kElse; sym_kEnd; sym_kIn; sym_kIs; sym_kMod; sym_kNot; sym_kOr; sym_kShl; sym_kShr;
   sym_kXor; anon_sym_SEMI; anon_sym_LBRACK; aux_sym__literalString_token1; anon_sym_POUND;
   anon_sym_DOT; sym_kEq; sym_kNeq; sym_kLte; sym_kGte; sym_kAdd; sym_kSub; sym_kMul; sym_kHat].

Definition syms_372 : list ts_symbol :=
  [sym_kAnd; sym_kAs; sym_kDiv; sym_kElse; sym_kEnd; sym_kFinalization; sym_kImplementation;
   sym_kIn; sym_kInitialization; sym_kInterface; sym_kIs; sym_kMod; sym_kNot; sym_kOr; sym_kShl;
   sym_kShr; sym_kXor; anon_sym_SEMI; anon_sym_LBRACK; sym_kEq; sym_kNeq; sym_kLte; sym_kGte;
   sym_kAdd; sym_kSub; sym_kMul; sym_kHat].

Definition syms_373 : list ts_symbol :=
  [sym_kAbsolute; sym_kAnd; sym_kAs; sym_kDiv; sym_kIn; sym_kIs; sym_kMod; sym_kNot; sym_kOr;
   sym_kShl; sym_kShr; sym_kXor; anon_sym_SEMI; sym_kEq; sym_kNeq; sym_kLte; sym_kGte; sym_kHat;
   sym_kAssign; sym_kAssignAdd; sym_kAssignSub; sym_kAssignMul; sym_kAssignDiv].

Definition syms_374 : list ts_symbol :=
  [sym_kAbsolute; sym_kAnd; sym_kAs; sym_kDiv; sym_kIn; sym_kIs; sym_kMod; sym_kNot; sym_kOr;
   sym_kShl; sym_kShr; sym_kXor; anon_sym_SEMI; anon_sym_LBRACK; anon_sym_DOT; sym_kEq; sym_kNeq;
   sym_kLte; sym_kGte; sym_kAssign; sym_kAssignAdd; sym_kAssignSub; sym_kAssignMul;
   sym_kAssignDiv].

Definition syms_375 : list ts_symbol :=
  [sym_kAbsolute; sym_kIn; sym_kIs; sym_kNot; anon_sym_SEMI; anon_sym_LBRACK; anon_sym_DOT;
   sym_kEq; sym_kNeq; sym_kLte; sym_kGte; sym_kAssign; sym_kAssignAdd; sym_kAssignSub;
   sym_kAssignMul; sym_kAssignDiv].

Definition syms_376 : list ts_symbol :=
  [sym_kAbsolute; sym_kIn; sym_kIs; sym_kNot; sym_kOr; sym_kXor; anon_sym_SEMI; anon_sym_LBRACK;
   anon_sym_DOT; sym_kEq; sym_kNeq; sym_kLte; sym_kGte; sym_kAssign; sym_kAssignAdd;
   sym_kAssignSub; sym_kAssignMul; sym_kAssignDiv].

Definition syms_377 : list ts_symbol :=
  [sym_kAnd; sym_kAs; sym_kDiv; sym_kEnd; sym_kIn; sym_kIs; sym_kMod; sym_kNot; sym_kOr;
   sym_kShl; sym_kShr; sym_kXor; anon_sym_SEMI; anon_sym_LBRACK; anon_sym_DOT; sym_kEq; sym_kNeq;
   sym_kLte; sym_kGte; sym_kAssign; sym_kAssignAdd; sym_kAssignSub; sym_kAssignMul;
   sym_kAssignDiv].

Definition syms_378 : list ts_symbol :=
  [sym_kElse; sym_kIn; sym_kIs; sym_kNot; sym_kOr; sym_kXor; anon_sym_SEMI; anon_sym_LBRACK;
   anon_sym_DOT; sym_kEq; sym_kNeq; sym_kLte; sym_kGte; sym_kAssign; sym_kAssignAdd;
   sym_kAssignSub; sym_kAssignMul; sym_kAssignDiv].

Definition syms_379 : list ts_symbol :=
  [sym_kAbsolute; anon_sym_SEMI; anon_sym_LBRACK; anon_sym_DOT; sym_kAssign; sym_kAssignAdd;
   sym_kAssignSub; sym_kAssignMul; sym_kAssignDiv].

Definition syms_380 : list ts_symbol :=
  [sym_kAnd; sym_kAs; sym_kDiv; sym_kEnd; sym_kIn; sym_kIs; sym_kMod; sym_kNot; sym_kOr;
   sym_kShl; sym_kShr; sym_kXor; anon_sym_SEMI; anon_sym_LBRACK; sym_kEq; sym_kNeq; sym_kLte;
   sym_kGte; sym_kHat; sym_kAssign; sym_kAssignAdd; sym_kAssignSub; sym_kAssignMul;
   sym_kAssignDiv].

Definition syms_381 : list ts_symbol :=
  [sym_kEnd; anon_sym_SEMI; anon_sym_LBRACK; anon_sym_DOT; sym_kAssign; sym_kAssignAdd;
   sym_kAssignSub; sym_kAssignMul; sym_kAssignDiv].

Definition syms_382 : list ts_symbol :=
  [sym_kAnd; sym_kAs; sym_kDiv; sym_kEnd; sym_kIn; sym_kIs; sym_kMod; sym_kNot; sym_kOr;
   sym_kShl; sym_kShr; sym_kXor; anon_sym_SEMI; sym_kEq; sym_kNeq; sym_kLte; sym_kGte; sym_kHat;
   sym_kAssign; sym_kAssignAdd; sym_kAssignSub; sym_kAssignMul; sym_kAssignDiv].

Definition syms_383 : list ts_symbol :=
  [sym__literalStringMultiline; sym_kRaiseAt; sym_kAnd; sym_kAs; sym_kDiv; sym_kElse;
   sym_kExcept; sym_kFinally; sym_kIn; sym_kIs; sym_kMod; sym_kNot; sym_kOr; sym_kShl; sym_kShr;
   sym_kXor; anon_sym_SEMI; anon_sym_LBRACK; aux_sym__literalString_token1; anon_sym_POUND;
   anon_sym_DOT; sym_kEq; sym_kNeq; sym_kLte; sym_kGte; sym_kAdd; sym_kSub; sym_kMul; sym_kHat].

Definition syms_384 : list ts_symbol :=
  [sym_kAnd; sym_kAs; sym_kDiv; sym_kIn; sym_kIs; sym_kMod; sym_kNot; sym_kOr; sym_kShl;
   sym_kShr; sym_kUntil; sym_kXor; anon_sym_SEMI; anon_sym_LBRACK; anon_sym_DOT; sym_kEq;
   sym_kNeq; sym_kLte; sym_kGte; sym_kAssign; sym_kAssignAdd; sym_kAssignSub; sym_kAssignMul;
   sym_kAssignDiv].

Definition syms_385 : list ts_symbol :=
  [sym_kIn; sym_kIs; sym_kNot; sym_kUntil; anon_sym_SEMI; anon_sym_LBRACK; anon_sym_DOT; sym_kEq;
   sym_kNeq; sym_kLte; sym_kGte; sym_kAssign; sym_kAssignAdd; sym_kAssignSub; sym_kAssignMul;
   sym_kAssignDiv].

Definition syms_386 : list ts_symbol :=
  [sym_kIn; sym_kIs; sym_kNot; sym_kOr; sym_kUntil; sym_kXor; anon_sym_SEMI; anon_sym_LBRACK;
   anon_sym_DOT; sym_kEq; sym_kNeq; sym_kLte; sym_kGte; sym_kAssign; sym_kAssignAdd;
   sym_kAssignSub; sym_kAssignMul; sym_kAssignDiv].

Definition syms_387 : list ts_symbol :=
  [sym_kAnd; sym_kAs; sym_kDiv; sym_kIn; sym_kIs; sym_kMod; sym_kNot; sym_kOr; sym_kShl;
   sym_kShr; sym_kUntil; sym_kXor; anon_sym_SEMI; anon_sym_LBRACK; sym_kEq; sym_kNeq; sym_kLte;
   sym_kGte; sym_kHat; sym_kAssign; sym_kAssignAdd; sym_kAssignSub; sym_kAssignMul;
   sym_kAssignDiv].

Definition syms_388 : list ts_symbol :=
  [sym_kAbsolute; sym_kAnd; sym_kAs; sym_kDiv; sym_kIn; sym_kIs; sym_kMod; sym_kNot; sym_kOr;
   sym_kShl; sym_kShr; sym_kXor; anon_sym_SEMI; anon_sym_LBRACK; sym_kEq; sym_kNeq; sym_kLte;
   sym_kGte; sym_kHat; sym_kAssign; sym_kAssignAdd; sym_kAssignSub; sym_kAssignMul;
   sym_kAssignDiv].

Definition syms_389 : list ts_symbol :=
  [sym_kAnd; sym_kAs; sym_kDiv; sym_kIn; sym_kIs; sym_kMod; sym_kNot; sym_kOr; sym_kShl;
   sym_kShr; sym_kUntil; sym_kXor; anon_sym_SEMI; sym_kEq; sym_kNeq; sym_kLte; sym_kGte;
   sym_kHat; sym_kAssign; sym_kAssignAdd; sym_kAssignSub; sym_kAssignMul; sym_kAssignDiv].

Definition syms_390 : list ts_symbol :=
  [sym__literalStringMultiline; sym_kAnd; sym_kAs; sym_kDiv; sym_kIn; sym_kIs; sym_kMod;
   sym_kNot; sym_kOr; sym_kShl; sym_kShr; sym_kXor; anon_sym_SEMI; anon_sym_COLON;
   anon_sym_COMMA; anon_sym_LBRACK; anon_sym_RBRACK; anon_sym_RPAREN;
   aux_sym__literalString_token1; anon_sym_POUND; anon_sym_DOT; sym_kEq; sym_kNeq; sym_kLte;
   sym_kGte; sym_kAdd; sym_kSub; sym_kMul; sym_kHat].

Definition syms_391 : list ts_symbol :=
  [sym_kEnd; sym_kIn; sym_kIs; sym_kNot; sym_kOr; sym_kXor; anon_sym_SEMI; anon_sym_LBRACK;
   anon_sym_DOT; sym_kEq; sym_kNeq; sym_kLte; sym_kGte; sym_kAssign; sym_kAssignAdd;
   sym_kAssignSub; sym_kAssignMul; sym_kAssignDiv].

Definition syms_392 : list ts_symbol :=
  [sym__literalStringMultiline; sym_kIndex; sym_kName; sym_kAnd; sym_kAs; sym_kDiv; sym_kIn;
   sym_kIs; sym_kMod; sym_kNot; sym_kOr; sym_kShl; sym_kShr; sym_kXor; anon_sym_SEMI;
   anon_sym_COMMA; anon_sym_LBRACK; aux_sym__literalString_token1; anon_sym_POUND; anon_sym_DOT;
   sym_kEq; sym_kNeq; sym_kLte; sym_kGte; sym_kAdd; sym_kSub; sym_kMul; sym_kHat].

Definition syms_393 : list ts_symbol :=
  [sym_kAnd; sym_kAs; sym_kDiv; sym_kEnd; sym_kFinalization; sym_kImplementation; sym_kIn;
   sym_kInitialization; sym_kInterface; sym_kIs; sym_kMod; sym_kNot; sym_kOr; sym_kShl; sym_kShr;
   sym_kXor; anon_sym_SEMI; sym_kEq; sym_kNeq; sym_kLte; sym_kGte; sym_kAdd; sym_kSub; sym_kMul;
   sym_kHat].

Definition syms_394 : list ts_symbol :=
  [sym_kAnd; sym_kAs; sym_kDiv; sym_kEnd; sym_kFinalization; sym_kImplementation; sym_kIn;
   sym_kInitialization; sym_kInterface; sym_kIs; sym_kMod; sym_kNot; sym_kOr; sym_kShl; sym_kShr;
   sym_kXor; anon_sym_SEMI; anon_sym_LBRACK; anon_sym_DOT; sym_kEq; sym_kNeq; sym_kLte; sym_kGte;
   sym_kAdd; sym_kSub; sym_kMul].

Definition syms_395 : list ts_symbol :=
  [sym_kEnd; sym_kFinalization; sym_kImplementation; sym_kIn; sym_kInitialization;
   sym_kInterface; sym_kIs; sym_kNot; anon_sym_SEMI; anon_sym_LBRACK; anon_sym_DOT; sym_kEq;
   sym_kNeq; sym_kLte; sym_kGte].

Definition syms_396 : list ts_symbol :=
  [sym_kEnd; sym_kFinalization; sym_kImplementation; sym_kIn; sym_kInitialization;
   sym_kInterface; sym_kIs; sym_kNot; sym_kOr; sym_kXor; anon_sym_SEMI; anon_sym_LBRACK;
   anon_sym_DOT; sym_kEq; sym_kNeq; sym_kLte; sym_kGte; sym_kAdd; sym_kSub].

Definition syms_397 : list ts_symbol :=
  [sym_kEnd; sym_kFinalization; sym_kImplementation; sym_kInitialization; sym_kInterface;
   anon_sym_SEMI; anon_sym_LBRACK; anon_sym_DOT].

Definition syms_398 : list ts_symbol :=
  [sym__literalStringMultiline; sym_kRaiseAt; sym_kAnd; sym_kAs; sym_kDiv; sym_kElse; sym_kIn;
   sym_kIs; sym_kMod; sym_kNot; sym_kOr; sym_kShl; sym_kShr; sym_kUntil; sym_kXor; anon_sym_SEMI;
   anon_sym_LBRACK; aux_sym__literalString_token1; anon_sym_POUND; anon_sym_DOT; sym_kEq;
   sym_kNeq; sym_kLte; sym_kGte; sym_kAdd; sym_kSub; sym_kMul; sym_kHat].

Definition syms_399 : list ts_symbol :=
  [sym_kAnd; sym_kAs; sym_kDiv; sym_kEnd; sym_kFinalization; sym_kImplementation; sym_kIn;
   sym_kInitialization; sym_kInterface; sym_kIs; sym_kMod; sym_kNot; sym_kOr; sym_kShl; sym_kShr;
   sym_kXor; anon_sym_SEMI; anon_sym_LBRACK; sym_kEq; sym_kNeq; sym_kLte; sym_kGte; sym_kAdd;
   sym_kSub; sym_kMul; sym_kHat].

Definition syms_400 : list ts_symbol :=
  [sym__literalStringMultiline; sym_kOtherwise; sym_kAnd; sym_kAs; sym_kDiv; sym_kElse; sym_kEnd;
   sym_kIn; sym_kIs; sym_kMod; sym_kNot; sym_kOr; sym_kShl; sym_kShr; sym_kXor; anon_sym_SEMI;
   anon_sym_LBRACK; aux_sym__literalString_token1; anon_sym_POUND; anon_sym_DOT; sym_kEq;
   sym_kNeq; sym_kLte; sym_kGte; sym_kAdd; sym_kSub; sym_kMul; sym_kHat].

Definition syms_401 : list ts_symbol :=
  [sym__literalStringMultiline; sym_kAnd; sym_kAs; sym_kDiv; sym_kElse; sym_kExcept;
   sym_kFinally; sym_kIn; sym_kIs; sym_kMod; sym_kNot; sym_kOr; sym_kShl; sym_kShr; sym_kXor;
   anon_sym_SEMI; anon_sym_LBRACK; aux_sym__literalString_token1; anon_sym_POUND; anon_sym_DOT;
   sym_kEq; sym_kNeq; sym_kLte; sym_kGte; sym_kAdd; sym_kSub; sym_kMul; sym_kHat].

Definition syms_402 : list ts_symbol :=
  [sym__literalStringMultiline; sym_kRaiseAt; sym_kAnd; sym_kAs; sym_kDiv; sym_kElse; sym_kEnd;
   sym_kIn; sym_kIs; sym_kMod; sym_kNot; sym_kOr; sym_kShl; sym_kShr; sym_kXor; anon_sym_SEMI;
   anon_sym_LBRACK; aux_sym__literalString_token1; anon_sym_POUND; anon_sym_DOT; sym_kEq;
   sym_kNeq; sym_kLte; sym_kGte; sym_kAdd; sym_kSub; sym_kMul; sym_kHat].

Definition syms_403 : list ts_symbol :=
  [sym_kAnd; sym_kAs; sym_kDiv; sym_kIn; sym_kIs; sym_kMod; sym_kNot; sym_kOr; sym_kShl;
   sym_kShr; sym_kXor; anon_sym_SEMI; anon_sym_LBRACK; anon_sym_DOT; sym_kEq; sym_kNeq; sym_kLte;
   sym_kGte; sym_kAssign; sym_kAssignAdd; sym_kAssignSub; sym_kAssignMul; sym_kAssignDiv].

Definition syms_404 : list ts_symbol :=
  [sym_kIn; sym_kIs; sym_kNot; anon_sym_SEMI; anon_sym_LBRACK; anon_sym_DOT; sym_kEq; sym_kNeq;
   sym_kLte; sym_kGte; sym_kAssign; sym_kAssignAdd; sym_kAssignSub; sym_kAssignMul;
   sym_kAssignDiv].

Definition syms_405 : list ts_symbol :=
  [sym_kIn; sym_kIs; sym_kNot; sym_kOr; sym_kXor; anon_sym_SEMI; anon_sym_LBRACK; anon_sym_DOT;
   sym_kEq; sym_kNeq; sym_kLte; sym_kGte; sym_kAssign; sym_kAssignAdd; sym_kAssignSub;
   sym_kAssignMul; sym_kAssignDiv].

Definition syms_406 : list ts_symbol :=
  [sym_kAnd; sym_kAs; sym_kDiv; sym_kIn; sym_kIs; sym_kMod; sym_kNot; sym_kOr; sym_kShl;
   sym_kShr; sym_kXor; anon_sym_SEMI; anon_sym_LBRACK; sym_kEq; sym_kNeq; sym_kLte; sym_kGte;
   sym_kHat; sym_kAssign; sym_kAssignAdd; sym_kAssignSub; sym_kAssignMul; sym_kAssignDiv].

Definition syms_407 : list ts_symbol :=
  [sym__literalStringMultiline; sym_kAnd; sym_kAs; sym_kDiv; sym_kIn; sym_kIs; sym_kMod;
   sym_kNot; sym_kOr; sym_kShl; sym_kShr; sym_kXor; anon_sym_COLON; anon_sym_COMMA;
   anon_sym_LBRACK; anon_sym_RBRACK; anon_sym_DOT_DOT; aux_sym__literalString_token1;
   anon_sym_POUND; sym_kEq; sym_kNeq; sym_kLte; sym_kGte; sym_kAdd; sym_kSub; sym_kMul; sym_kHat].

Definition syms_408 : list ts_symbol :=
  [anon_sym_SEMI; anon_sym_LBRACK; anon_sym_DOT; sym_kAssign; sym_kAssignAdd; sym_kAssignSub;
   sym_kAssignMul; sym_kAssignDiv].

Definition syms_409 : list ts_symbol :=
  [sym__literalStringMultiline; sym_kIndex; sym_kName; sym_kDelayed; sym_kAnd; sym_kAs; sym_kDiv;
   sym_kIn; sym_kIs; sym_kMod; sym_kNot; sym_kOr; sym_kShl; sym_kShr; sym_kXor; anon_sym_SEMI;
   anon_sym_LBRACK; aux_sym__literalString_token1; anon_sym_POUND; anon_sym_DOT; sym_kEq;
   sym_kNeq; sym_kLte; sym_kGte; sym_kAdd; sym_kSub; sym_kMul; sym_kHat].

Definition syms_410 : list ts_symbol :=
  [sym__literalStringMultiline; sym_kAnd; sym_kAs; sym_kDiv; sym_kIn; sym_kIs; sym_kMod;
   sym_kNot; sym_kOf; sym_kOr; sym_kShl; sym_kShr; sym_kXor; anon_sym_SEMI; anon_sym_LBRACK;
   anon_sym_RBRACK; anon_sym_RPAREN; aux_sym__literalString_token1; anon_sym_POUND; anon_sym_DOT;
   sym_kEq; sym_kNeq; sym_kLte; sym_kGte; sym_kAdd; sym_kSub; sym_kMul; sym_kHat].

Definition syms_411 : list ts_symbol :=
  [sym__literalStringMultiline; sym_kRaiseAt; sym_kAnd; sym_kAs; sym_kDiv; sym_kExcept;
   sym_kFinally; sym_kIn; sym_kIs; sym_kMod; sym_kNot; sym_kOr; sym_kShl; sym_kShr; sym_kXor;
   anon_sym_SEMI; anon_sym_LBRACK; aux_sym__literalString_token1; anon_sym_POUND; anon_sym_DOT;
   sym_kEq; sym_kNeq; sym_kLte; sym_kGte; sym_kAdd; sym_kSub; sym_kMul; sym_kHat].

Definition syms_412 : list ts_symbol :=
  [sym_kAnd; sym_kAs; sym_kDiv; sym_kDo; sym_kIn; sym_kIs; sym_kMod; sym_kNot; sym_kOr; sym_kShl;
   sym_kShr; sym_kXor; sym_kEq; sym_kNeq; sym_kLte; sym_kGte; sym_kHat; sym_kAssign;
   sym_kAssignAdd; sym_kAssignSub; sym_kAssignMul; sym_kAssignDiv].

Definition syms_413 : list ts_symbol :=
  [sym_ppBlock; aux_sym__declFields; sym_declField].

Definition syms_414 : list ts_symbol :=
  [sym_kGeneric; sym_kOperator; sym_kPublished; sym_kPublic; sym_kProtected; sym_kPrivate;
   sym_kStrict; sym_kRequired; sym_kOptional; sym_kCase; sym_kClass; sym_kConst;
   sym_kConstructor; sym_kDestructor; sym_kEnd; sym_kFunction; sym_kProcedure; sym_kProperty;
   sym_kResourcestring; sym_kThreadvar; sym_kType; sym_kVar].

Definition syms_415 : list ts_symbol :=
  [sym_kAnd; sym_kAs; sym_kDiv; sym_kDo; sym_kIn; sym_kIs; sym_kMod; sym_kNot; sym_kOr; sym_kShl;
   sym_kShr; sym_kXor; anon_sym_LBRACK; anon_sym_DOT; sym_kEq; sym_kNeq; sym_kLte; sym_kGte;
   sym_kAssign; sym_kAssignAdd; sym_kAssignSub; sym_kAssignMul; sym_kAssignDiv].

Definition syms_416 : list ts_symbol :=
  [sym_kDo; sym_kIn; sym_kIs; sym_kNot; anon_sym_LBRACK; anon_sym_DOT; sym_kEq; sym_kNeq;
   sym_kLte; sym_kGte; sym_kAssign; sym_kAssignAdd; sym_kAssignSub; sym_kAssignMul;
   sym_kAssignDiv].

Definition syms_417 : list ts_symbol :=
  [sym_kDo; sym_kIn; sym_kIs; sym_kNot; sym_kOr; sym_kXor; anon_sym_LBRACK; anon_sym_DOT;
   sym_kEq; sym_kNeq; sym_kLte; sym_kGte; sym_kAssign; sym_kAssignAdd; sym_kAssignSub;
   sym_kAssignMul; sym_kAssignDiv].

Definition syms_418 : list ts_symbol :=
  [sym_kAnd; sym_kAs; sym_kDiv; sym_kIn; sym_kIs; sym_kMod; sym_kNot; sym_kOr; sym_kShl;
   sym_kShr; sym_kXor; anon_sym_SEMI; sym_kEq; sym_kNeq; sym_kLte; sym_kGte; sym_kHat;
   sym_kAssign; sym_kAssignAdd; sym_kAssignSub; sym_kAssignMul; sym_kAssignDiv].

Definition syms_419 : list ts_symbol :=
  [sym_kDo; anon_sym_LBRACK; anon_sym_DOT; sym_kAssign; sym_kAssignAdd; sym_kAssignSub;
   sym_kAssignMul; sym_kAssignDiv].

Definition syms_420 : list ts_symbol :=
  [sym_kAnd; sym_kAs; sym_kDiv; sym_kDo; sym_kIn; sym_kIs; sym_kMod; sym_kNot; sym_kOr; sym_kShl;
   sym_kShr; sym_kXor; anon_sym_LBRACK; sym_kEq; sym_kNeq; sym_kLte; sym_kGte; sym_kHat;
   sym_kAssign; sym_kAssignAdd; sym_kAssignSub; sym_kAssignMul; sym_kAssignDiv].

Definition syms_421 : list ts_symbol :=
  [sym_kRaiseAt; sym_kElse; sym_kExcept; sym_kFinally; anon_sym_SEMI; anon_sym_LBRACK;
   anon_sym_DOT].

Definition syms_422 : list ts_symbol :=
  [sym_kRaiseAt; sym_kAnd; sym_kAs; sym_kDiv; sym_kElse; sym_kExcept; sym_kFinally; sym_kIn;
   sym_kIs; sym_kMod; sym_kNot; sym_kOr; sym_kShl; sym_kShr; sym_kXor; anon_sym_SEMI;
   anon_sym_LBRACK; sym_kEq; sym_kNeq; sym_kLte; sym_kGte; sym_kAdd; sym_kSub; sym_kMul; sym_kHat].

Definition syms_423 : list ts_symbol :=
  [sym_kAnd; sym_kAs; sym_kDiv; sym_kIn; sym_kIs; sym_kMod; sym_kNot; sym_kOr; sym_kShl;
   sym_kShr; sym_kXor; anon_sym_SEMI; anon_sym_COLON; anon_sym_COMMA; anon_sym_RBRACK;
   anon_sym_RPAREN; sym_kEq; sym_kNeq; sym_kLte; sym_kGte; sym_kAdd; sym_kSub; sym_kMul; sym_kHat].

Definition syms_424 : list ts_symbol :=
  [sym__literalStringMultiline; sym_kAnd; sym_kAs; sym_kDiv; sym_kExcept; sym_kFinally; sym_kIn;
   sym_kIs; sym_kMod; sym_kNot; sym_kOr; sym_kShl; sym_kShr; sym_kXor; anon_sym_SEMI;
   anon_sym_LBRACK; aux_sym__literalString_token1; anon_sym_POUND; anon_sym_DOT; sym_kEq;
   sym_kNeq; sym_kLte; sym_kGte; sym_kAdd; sym_kSub; sym_kMul; sym_kHat].

Definition syms_425 : list ts_symbol :=
  [sym_kRaiseAt; sym_kAnd; sym_kAs; sym_kDiv; sym_kElse; sym_kExcept; sym_kFinally; sym_kIn;
   sym_kIs; sym_kMod; sym_kNot; sym_kOr; sym_kShl; sym_kShr; sym_kXor; anon_sym_SEMI;
   anon_sym_LBRACK; anon_sym_DOT; sym_kEq; sym_kNeq; sym_kLte; sym_kGte; sym_kAdd; sym_kSub;
   sym_kMul].

Definition syms_426 : list ts_symbol :=
  [sym_kRaiseAt; sym_kElse; sym_kExcept; sym_kFinally; sym_kIn; sym_kIs; sym_kNot; anon_sym_SEMI;
   anon_sym_LBRACK; anon_sym_DOT; sym_kEq; sym_kNeq; sym_kLte; sym_kGte].

Definition syms_427 : list ts_symbol :=
  [sym_kRaiseAt; sym_kElse; sym_kExcept; sym_kFinally; sym_kIn; sym_kIs; sym_kNot; sym_kOr;
   sym_kXor; anon_sym_SEMI; anon_sym_LBRACK; anon_sym_DOT; sym_kEq; sym_kNeq; sym_kLte; sym_kGte;
   sym_kAdd; sym_kSub].

Definition syms_428 : list ts_symbol :=
  [sym_kOtherwise; sym_kRaiseAt; sym_kAnd; sym_kAs; sym_kDiv; sym_kElse; sym_kEnd; sym_kIn;
   sym_kIs; sym_kMod; sym_kNot; sym_kOr; sym_kShl; sym_kShr; sym_kXor; anon_sym_SEMI;
   anon_sym_LBRACK; sym_kEq; sym_kNeq; sym_kLte; sym_kGte; sym_kAdd; sym_kSub; sym_kMul; sym_kHat].

Definition syms_429 : list ts_symbol :=
  [sym_kLt; sym_kGt; sym_kFdiv].

Definition syms_430 : list ts_symbol :=
  [sym_operatorDot; sym__operatorName; sym_operatorName].

Definition syms_431 : list ts_symbol :=
  [sym_kAnd; sym_kDiv; sym_kIn; sym_kMod; sym_kNot; sym_kOr; sym_kShl; sym_kShr; sym_kXor;
   sym_kEq; sym_kNeq; sym_kLte; sym_kGte; sym_kAdd; sym_kSub; sym_kMul; sym_kAssign].

Definition syms_432 : list ts_symbol :=
  [sym_kOtherwise; sym_kRaiseAt; sym_kAnd; sym_kAs; sym_kDiv; sym_kElse; sym_kEnd; sym_kIn;
   sym_kIs; sym_kMod; sym_kNot; sym_kOr; sym_kShl; sym_kShr; sym_kXor; anon_sym_SEMI; sym_kEq;
   sym_kNeq; sym_kLte; sym_kGte; sym_kAdd; sym_kSub; sym_kMul; sym_kHat].

Definition syms_433 : list ts_symbol :=
  [sym__literalStringMultiline; sym_kAbsolute; sym_kAnd; sym_kAs; sym_kDiv; sym_kIn; sym_kIs;
   sym_kMod; sym_kNot; sym_kOf; sym_kOr; sym_kShl; sym_kShr; sym_kXor; anon_sym_SEMI;
   anon_sym_LBRACK; aux_sym__literalString_token1; anon_sym_POUND; anon_sym_DOT; sym_kEq;
   sym_kNeq; sym_kLte; sym_kGte; sym_kAdd; sym_kSub; sym_kMul; sym_kHat].

Definition syms_434 : list ts_symbol :=
  [sym__literalStringMultiline; sym_kAnd; sym_kAs; sym_kDiv; sym_kElse; sym_kIn; sym_kIs;
   sym_kMod; sym_kNot; sym_kOr; sym_kShl; sym_kShr; sym_kUntil; sym_kXor; anon_sym_SEMI;
   anon_sym_LBRACK; aux_sym__literalString_token1; anon_sym_POUND; anon_sym_DOT; sym_kEq;
   sym_kNeq; sym_kLte; sym_kGte; sym_kAdd; sym_kSub; sym_kMul; sym_kHat].

Definition syms_435 : list ts_symbol :=
  [sym_kOtherwise; sym_kRaiseAt; sym_kAnd; sym_kAs; sym_kDiv; sym_kElse; sym_kEnd; sym_kIn;
   sym_kIs; sym_kMod; sym_kNot; sym_kOr; sym_kShl; sym_kShr; sym_kXor; anon_sym_SEMI;
   anon_sym_LBRACK; anon_sym_DOT; sym_kEq; sym_kNeq; sym_kLte; sym_kGte; sym_kAdd; sym_kSub;
   sym_kMul].

Definition syms_436 : list ts_symbol :=
  [sym__literalStringMultiline; sym_kRaiseAt; sym_kAnd; sym_kAs; sym_kDiv; sym_kIn; sym_kIs;
   sym_kMod; sym_kNot; sym_kOr; sym_kShl; sym_kShr; sym_kUntil; sym_kXor; anon_sym_SEMI;
   anon_sym_LBRACK; aux_sym__literalString_token1; anon_sym_POUND; anon_sym_DOT; sym_kEq;
   sym_kNeq; sym_kLte; sym_kGte; sym_kAdd; sym_kSub; sym_kMul; sym_kHat].

Definition syms_437 : list ts_symbol :=
  [sym_kOtherwise; sym_kRaiseAt; sym_kElse; sym_kEnd; sym_kIn; sym_kIs; sym_kNot; anon_sym_SEMI;
   anon_sym_LBRACK; anon_sym_DOT; sym_kEq; sym_kNeq; sym_kLte; sym_kGte].

Definition syms_438 : list ts_symbol :=
  [sym_kOtherwise; sym_kRaiseAt; sym_kElse; sym_kEnd; sym_kIn; sym_kIs; sym_kNot; sym_kOr;
   sym_kXor; anon_sym_SEMI; anon_sym_LBRACK; anon_sym_DOT; sym_kEq; sym_kNeq; sym_kLte; sym_kGte;
   sym_kAdd; sym_kSub].

Definition syms_439 : list ts_symbol :=
  [sym__literalStringMultiline; sym_kAnd; sym_kAs; sym_kDiv; sym_kIn; sym_kIs; sym_kMod;
   sym_kNot; sym_kOf; sym_kOr; sym_kShl; sym_kShr; sym_kXor; anon_sym_LBRACK;
   aux_sym__literalString_token1; anon_sym_POUND; aux_sym_ppUsesBlock_token2;
   aux_sym_ppUsesBlock_token3; anon_sym_DOT; sym_kEq; sym_kNeq; sym_kLte; sym_kGte; sym_kAdd;
   sym_kSub; sym_kMul; sym_kHat].

Definition syms_440 : list ts_symbol :=
  [sym__literalStringMultiline; sym_kAnd; sym_kAs; sym_kDiv; sym_kIn; sym_kIs; sym_kMod;
   sym_kNot; sym_kOr; sym_kShl; sym_kShr; sym_kXor; anon_sym_SEMI; anon_sym_LBRACK;
   aux_sym__literalString_token1; anon_sym_POUND; aux_sym_ppUsesBlock_token2;
   aux_sym_ppUsesBlock_token3; anon_sym_DOT; sym_kEq; sym_kNeq; sym_kLte; sym_kGte; sym_kAdd;
   sym_kSub; sym_kMul; sym_kHat].

Definition syms_441 : list ts_symbol :=
  [sym__literalStringMultiline; sym_kAnd; sym_kAs; sym_kDiv; sym_kElse; sym_kEnd; sym_kIn;
   sym_kIs; sym_kMod; sym_kNot; sym_kOr; sym_kShl; sym_kShr; sym_kXor; anon_sym_SEMI;
   anon_sym_LBRACK; aux_sym__literalString_token1; anon_sym_POUND; anon_sym_DOT; sym_kEq;
   sym_kNeq; sym_kLte; sym_kGte; sym_kAdd; sym_kSub; sym_kMul; sym_kHat].

Definition syms_442 : list ts_symbol :=
  [sym__literalStringMultiline; sym_kRaiseAt; sym_kAnd; sym_kAs; sym_kDiv; sym_kElse; sym_kIn;
   sym_kIs; sym_kMod; sym_kNot; sym_kOr; sym_kShl; sym_kShr; sym_kXor; anon_sym_SEMI;
   anon_sym_LBRACK; aux_sym__literalString_token1; anon_sym_POUND; anon_sym_DOT; sym_kEq;
   sym_kNeq; sym_kLte; sym_kGte; sym_kAdd; sym_kSub; sym_kMul; sym_kHat].

Definition syms_443 : list ts_symbol :=
  [sym_kRaiseAt; sym_kAnd; sym_kAs; sym_kDiv; sym_kElse; sym_kExcept; sym_kFinally; sym_kIn;
   sym_kIs; sym_kMod; sym_kNot; sym_kOr; sym_kShl; sym_kShr; sym_kXor; anon_sym_SEMI; sym_kEq;
   sym_kNeq; sym_kLte; sym_kGte; sym_kAdd; sym_kSub; sym_kMul; sym_kHat].

Definition syms_444 : list ts_symbol :=
  [sym_ppBlock; sym_declConst; aux_sym_declConsts_repeat1].

Definition syms_445 : list ts_symbol :=
  [sym_kAnd; sym_kAs; sym_kDiv; sym_kIn; sym_kIs; sym_kMod; sym_kNot; sym_kOr; sym_kShl;
   sym_kShr; sym_kXor; anon_sym_SEMI; anon_sym_COLON; anon_sym_COMMA; anon_sym_LBRACK;
   anon_sym_RBRACK; anon_sym_RPAREN; anon_sym_DOT; sym_kEq; sym_kNeq; sym_kLte; sym_kGte;
   sym_kAdd; sym_kSub; sym_kMul].

Definition syms_446 : list ts_symbol :=
  [sym_kIn; sym_kIs; sym_kNot; anon_sym_SEMI; anon_sym_COLON; anon_sym_COMMA; anon_sym_LBRACK;
   anon_sym_RBRACK; anon_sym_RPAREN; anon_sym_DOT; sym_kEq; sym_kNeq; sym_kLte; sym_kGte].

Definition syms_447 : list ts_symbol :=
  [sym_kIn; sym_kIs; sym_kNot; sym_kOr; sym_kXor; anon_sym_SEMI; anon_sym_COLON; anon_sym_COMMA;
   anon_sym_LBRACK; anon_sym_RBRACK; anon_sym_RPAREN; anon_sym_DOT; sym_kEq; sym_kNeq; sym_kLte;
   sym_kGte; sym_kAdd; sym_kSub].

Definition syms_448 : list ts_symbol :=
  [sym__literalStringMultiline; sym_kRaiseAt; sym_kAnd; sym_kAs; sym_kDiv; sym_kEnd; sym_kIn;
   sym_kIs; sym_kMod; sym_kNot; sym_kOr; sym_kShl; sym_kShr; sym_kXor; anon_sym_SEMI;
   anon_sym_LBRACK; aux_sym__literalString_token1; anon_sym_POUND; anon_sym_DOT; sym_kEq;
   sym_kNeq; sym_kLte; sym_kGte; sym_kAdd; sym_kSub; sym_kMul; sym_kHat].

Definition syms_449 : list ts_symbol :=
  [anon_sym_SEMI; anon_sym_COLON; anon_sym_COMMA; anon_sym_LBRACK; anon_sym_RBRACK;
   anon_sym_RPAREN; anon_sym_DOT].

Definition syms_450 : list ts_symbol :=
  [sym_kOtherwise; sym_kRaiseAt; sym_kElse; sym_kEnd; anon_sym_SEMI; anon_sym_LBRACK;
   anon_sym_DOT].

Definition syms_451 : list ts_symbol :=
  [sym_kGeneric; sym_kOperator; sym_kClass; sym_kConst; sym_kConstructor; sym_kDestructor;
   sym_kEnd; sym_kExports; sym_kFinalization; sym_kFunction; sym_kImplementation;
   sym_kInitialization; sym_kInterface; sym_kLabel; sym_kProcedure; sym_kProperty;
   sym_kResourcestring; sym_kThreadvar; sym_kType; sym_kUses; sym_kVar].

Definition syms_452 : list ts_symbol :=
  [sym_kGeneric; sym_kOperator; sym_kBegin; sym_kClass; sym_kConst; sym_kConstructor;
   sym_kDestructor; sym_kEnd; sym_kExports; sym_kFinalization; sym_kFunction;
   sym_kImplementation; sym_kInitialization; sym_kInterface; sym_kLabel; sym_kProcedure;
   sym_kResourcestring; sym_kThreadvar; sym_kType; sym_kUses; sym_kVar].

Definition syms_453 : list ts_symbol :=
  [sym_kOtherwise; sym_kAnd; sym_kAs; sym_kDiv; sym_kElse; sym_kEnd; sym_kIn; sym_kIs; sym_kMod;
   sym_kNot; sym_kOr; sym_kShl; sym_kShr; sym_kXor; anon_sym_SEMI; anon_sym_LBRACK; anon_sym_DOT;
   sym_kEq; sym_kNeq; sym_kLte; sym_kGte; sym_kAdd; sym_kSub; sym_kMul].

Definition syms_454 : list ts_symbol :=
  [sym_kOtherwise; sym_kElse; sym_kEnd; sym_kIn; sym_kIs; sym_kNot; anon_sym_SEMI;
   anon_sym_LBRACK; anon_sym_DOT; sym_kEq; sym_kNeq; sym_kLte; sym_kGte].

Definition syms_455 : list ts_symbol :=
  [sym_kOtherwise; sym_kElse; sym_kEnd; sym_kIn; sym_kIs; sym_kNot; sym_kOr; sym_kXor;
   anon_sym_SEMI; anon_sym_LBRACK; anon_sym_DOT; sym_kEq; sym_kNeq; sym_kLte; sym_kGte; sym_kAdd;
   sym_kSub].

Definition syms_456 : list ts_symbol :=
  [sym_kRaiseAt; sym_kElse; sym_kEnd; sym_kIn; sym_kIs; sym_kNot; anon_sym_SEMI; anon_sym_LBRACK;
   anon_sym_DOT; sym_kEq; sym_kNeq; sym_kLte; sym_kGte].

Definition syms_457 : list ts_symbol :=
  [sym_kOtherwise; sym_kElse; sym_kEnd; anon_sym_SEMI; anon_sym_LBRACK; anon_sym_DOT].

Definition syms_458 : list ts_symbol :=
  [sym_kRaiseAt; sym_kAnd; sym_kAs; sym_kDiv; sym_kElse; sym_kEnd; sym_kIn; sym_kIs; sym_kMod;
   sym_kNot; sym_kOr; sym_kShl; sym_kShr; sym_kXor; anon_sym_SEMI; anon_sym_LBRACK; sym_kEq;
   sym_kNeq; sym_kLte; sym_kGte; sym_kAdd; sym_kSub; sym_kMul; sym_kHat].

Definition syms_459 : list ts_symbol :=
  [sym_kAnd; sym_kAs; sym_kDiv; sym_kElse; sym_kExcept; sym_kFinally; sym_kIn; sym_kIs; sym_kMod;
   sym_kNot; sym_kOr; sym_kShl; sym_kShr; sym_kXor; anon_sym_SEMI; sym_kEq; sym_kNeq; sym_kLte;
   sym_kGte; sym_kAdd; sym_kSub; sym_kMul; sym_kHat].

Definition syms_460 : list ts_symbol :=
  [sym_kAnd; sym_kAs; sym_kDiv; sym_kElse; sym_kExcept; sym_kFinally; sym_kIn; sym_kIs; sym_kMod;
   sym_kNot; sym_kOr; sym_kShl; sym_kShr; sym_kXor; anon_sym_SEMI; anon_sym_LBRACK; anon_sym_DOT;
   sym_kEq; sym_kNeq; sym_kLte; sym_kGte; sym_kAdd; sym_kSub; sym_kMul].

Definition syms_461 : list ts_symbol :=
  [sym_kElse; sym_kExcept; sym_kFinally; sym_kIn; sym_kIs; sym_kNot; anon_sym_SEMI;
   anon_sym_LBRACK; anon_sym_DOT; sym_kEq; sym_kNeq; sym_kLte; sym_kGte].

Definition syms_462 : list ts_symbol :=
  [sym_kElse; sym_kExcept; sym_kFinally; sym_kIn; sym_kIs; sym_kNot; sym_kOr; sym_kXor;
   anon_sym_SEMI; anon_sym_LBRACK; anon_sym_DOT; sym_kEq; sym_kNeq; sym_kLte; sym_kGte; sym_kAdd;
   sym_kSub].

Definition syms_463 : list ts_symbol :=
  [sym_kElse; sym_kExcept; sym_kFinally; anon_sym_SEMI; anon_sym_LBRACK; anon_sym_DOT].

Definition syms_464 : list ts_symbol :=
  [sym_kAbsolute; anon_sym_SEMI; sym_kAssign; sym_kAssignAdd; sym_kAssignSub; sym_kAssignMul;
   sym_kAssignDiv].

Definition syms_465 : list ts_symbol :=
  [sym_kRaiseAt; sym_kElse; sym_kEnd; anon_sym_SEMI; anon_sym_LBRACK; anon_sym_DOT].

Definition syms_466 : list ts_symbol :=
  [sym_kRaiseAt; sym_kAnd; sym_kAs; sym_kDiv; sym_kElse; sym_kEnd; sym_kIn; sym_kIs; sym_kMod;
   sym_kNot; sym_kOr; sym_kShl; sym_kShr; sym_kXor; anon_sym_SEMI; anon_sym_LBRACK; anon_sym_DOT;
   sym_kEq; sym_kNeq; sym_kLte; sym_kGte; sym_kAdd; sym_kSub; sym_kMul].

Definition syms_467 : list ts_symbol :=
  [sym_kAnd; sym_kAs; sym_kDiv; sym_kIn; sym_kIs; sym_kMod; sym_kNot; sym_kOr; sym_kShl;
   sym_kShr; sym_kXor; anon_sym_COLON; anon_sym_COMMA; anon_sym_RBRACK; anon_sym_DOT_DOT;
   sym_kEq; sym_kNeq; sym_kLte; sym_kGte; sym_kAdd; sym_kSub; sym_kMul; sym_kHat].

Definition syms_468 : list ts_symbol :=
  [sym__literalStringMultiline; sym_kAnd; sym_kAs; sym_kDiv; sym_kDo; sym_kIn; sym_kIs; sym_kMod;
   sym_kNot; sym_kOr; sym_kShl; sym_kShr; sym_kXor; anon_sym_COMMA; anon_sym_LBRACK;
   aux_sym__literalString_token1; anon_sym_POUND; anon_sym_DOT; sym_kEq; sym_kNeq; sym_kLte;
   sym_kGte; sym_kAdd; sym_kSub; sym_kMul; sym_kHat].

Definition syms_469 : list ts_symbol :=
  [sym_kOtherwise; sym_kAnd; sym_kAs; sym_kDiv; sym_kElse; sym_kEnd; sym_kIn; sym_kIs; sym_kMod;
   sym_kNot; sym_kOr; sym_kShl; sym_kShr; sym_kXor; anon_sym_SEMI; anon_sym_LBRACK; sym_kEq;
   sym_kNeq; sym_kLte; sym_kGte; sym_kAdd; sym_kSub; sym_kMul; sym_kHat].

Definition syms_470 : list ts_symbol :=
  [sym_kRaiseAt; sym_kAnd; sym_kAs; sym_kDiv; sym_kElse; sym_kEnd; sym_kIn; sym_kIs; sym_kMod;
   sym_kNot; sym_kOr; sym_kShl; sym_kShr; sym_kXor; anon_sym_SEMI; sym_kEq; sym_kNeq; sym_kLte;
   sym_kGte; sym_kAdd; sym_kSub; sym_kMul; sym_kHat].

Definition syms_471 : list ts_symbol :=
  [sym_kAnd; sym_kAs; sym_kDiv; sym_kIn; sym_kIs; sym_kMod; sym_kNot; sym_kOf; sym_kOr; sym_kShl;
   sym_kShr; sym_kXor; anon_sym_SEMI; anon_sym_RBRACK; anon_sym_RPAREN; sym_kEq; sym_kNeq;
   sym_kLte; sym_kGte; sym_kAdd; sym_kSub; sym_kMul; sym_kHat].

Definition syms_472 : list ts_symbol :=
  [sym_kAnd; sym_kAs; sym_kDiv; sym_kIn; sym_kIs; sym_kMod; sym_kNot; sym_kOr; sym_kShl;
   sym_kShr; sym_kXor; anon_sym_COLON; anon_sym_COMMA; anon_sym_LBRACK; anon_sym_RBRACK;
   anon_sym_DOT_DOT; sym_kEq; sym_kNeq; sym_kLte; sym_kGte; sym_kAdd; sym_kSub; sym_kMul].

Definition syms_473 : list ts_symbol :=
  [anon_sym_LPAREN; anon_sym_DOT; sym_kLt; sym_kGt].

Definition syms_474 : list ts_symbol :=
  [sym_kIn; sym_kIs; sym_kNot; anon_sym_COLON; anon_sym_COMMA; anon_sym_LBRACK; anon_sym_RBRACK;
   anon_sym_DOT_DOT; sym_kEq; sym_kNeq; sym_kLte; sym_kGte].

Definition syms_475 : list ts_symbol :=
  [sym_kIn; sym_kIs; sym_kNot; sym_kOr; sym_kXor; anon_sym_COLON; anon_sym_COMMA;
   anon_sym_LBRACK; anon_sym_RBRACK; anon_sym_DOT_DOT; sym_kEq; sym_kNeq; sym_kLte; sym_kGte;
   sym_kAdd; sym_kSub].

Definition syms_476 : list ts_symbol :=
  [anon_sym_LPAREN; anon_sym_DOT].

Definition syms_477 : list ts_symbol :=
  [anon_sym_COLON; anon_sym_COMMA; anon_sym_LBRACK; anon_sym_RBRACK; anon_sym_DOT_DOT].

Definition syms_478 : list ts_symbol :=
  [sym__literalStringMultiline; sym_kRaiseAt; sym_kAnd; sym_kAs; sym_kDiv; sym_kIn; sym_kIs;
   sym_kMod; sym_kNot; sym_kOr; sym_kShl; sym_kShr; sym_kXor; anon_sym_SEMI; anon_sym_LBRACK;
   aux_sym__literalString_token1; anon_sym_POUND; anon_sym_DOT; sym_kEq; sym_kNeq; sym_kLte;
   sym_kGte; sym_kAdd; sym_kSub; sym_kMul; sym_kHat].

Definition syms_479 : list ts_symbol :=
  [sym__literalStringMultiline; sym_kAbsolute; sym_kAnd; sym_kAs; sym_kDiv; sym_kIn; sym_kIs;
   sym_kMod; sym_kNot; sym_kOr; sym_kShl; sym_kShr; sym_kXor; anon_sym_SEMI; anon_sym_LBRACK;
   aux_sym__literalString_token1; anon_sym_POUND; anon_sym_DOT; sym_kEq; sym_kNeq; sym_kLte;
   sym_kGte; sym_kAdd; sym_kSub; sym_kMul; sym_kHat].

Definition syms_480 : list ts_symbol :=
  [sym_kIndex; sym_kName; sym_kDelayed; sym_kAnd; sym_kAs; sym_kDiv; sym_kIn; sym_kIs; sym_kMod;
   sym_kNot; sym_kOr; sym_kShl; sym_kShr; sym_kXor; anon_sym_SEMI; sym_kEq; sym_kNeq; sym_kLte;
   sym_kGte; sym_kAdd; sym_kSub; sym_kMul; sym_kHat].

Definition syms_481 : list ts_symbol :=
  [sym_kElse; sym_kEnd; sym_kFinalization; sym_kImplementation; sym_kInitialization;
   sym_kInterface; anon_sym_SEMI].

Definition syms_482 : list ts_symbol :=
  [sym_kIndex; sym_kName; sym_kDelayed; sym_kAnd; sym_kAs; sym_kDiv; sym_kIn; sym_kIs; sym_kMod;
   sym_kNot; sym_kOr; sym_kShl; sym_kShr; sym_kXor; anon_sym_SEMI; anon_sym_LBRACK; anon_sym_DOT;
   sym_kEq; sym_kNeq; sym_kLte; sym_kGte; sym_kAdd; sym_kSub; sym_kMul].

Definition syms_483 : list ts_symbol :=
  [sym_kIndex; sym_kName; sym_kDelayed; sym_kIn; sym_kIs; sym_kNot; anon_sym_SEMI;
   anon_sym_LBRACK; anon_sym_DOT; sym_kEq; sym_kNeq; sym_kLte; sym_kGte].

Definition syms_484 : list ts_symbol :=
  [sym_kIndex; sym_kName; sym_kDelayed; sym_kIn; sym_kIs; sym_kNot; sym_kOr; sym_kXor;
   anon_sym_SEMI; anon_sym_LBRACK; anon_sym_DOT; sym_kEq; sym_kNeq; sym_kLte; sym_kGte; sym_kAdd;
   sym_kSub].

Definition syms_485 : list ts_symbol :=
  [sym_kIndex; sym_kName; sym_kDelayed; anon_sym_SEMI; anon_sym_LBRACK; anon_sym_DOT].

Definition syms_486 : list ts_symbol :=
  [sym_kIndex; sym_kName; sym_kDelayed; sym_kAnd; sym_kAs; sym_kDiv; sym_kIn; sym_kIs; sym_kMod;
   sym_kNot; sym_kOr; sym_kShl; sym_kShr; sym_kXor; anon_sym_SEMI; anon_sym_LBRACK; sym_kEq;
   sym_kNeq; sym_kLte; sym_kGte; sym_kAdd; sym_kSub; sym_kMul; sym_kHat].

Definition syms_487 : list ts_symbol :=
  [sym_kAnd; sym_kAs; sym_kDiv; sym_kIn; sym_kIs; sym_kMod; sym_kNot; sym_kOf; sym_kOr; sym_kShl;
   sym_kShr; sym_kXor; anon_sym_SEMI; anon_sym_LBRACK; anon_sym_RBRACK; anon_sym_RPAREN;
   anon_sym_DOT; sym_kEq; sym_kNeq; sym_kLte; sym_kGte; sym_kAdd; sym_kSub; sym_kMul].

Definition syms_488 : list ts_symbol :=
  [sym_kIn; sym_kIs; sym_kNot; sym_kOf; anon_sym_SEMI; anon_sym_LBRACK; anon_sym_RBRACK;
   anon_sym_RPAREN; anon_sym_DOT; sym_kEq; sym_kNeq; sym_kLte; sym_kGte].

Definition syms_489 : list ts_symbol :=
  [sym_kIn; sym_kIs; sym_kNot; sym_kOf; sym_kOr; sym_kXor; anon_sym_SEMI; anon_sym_LBRACK;
   anon_sym_RBRACK; anon_sym_RPAREN; anon_sym_DOT; sym_kEq; sym_kNeq; sym_kLte; sym_kGte;
   sym_kAdd; sym_kSub].

Definition syms_490 : list ts_symbol :=
  [sym_kAnd; sym_kAs; sym_kDiv; sym_kIn; sym_kIs; sym_kMod; sym_kNot; sym_kOf; sym_kOr; sym_kShl;
   sym_kShr; sym_kXor; anon_sym_SEMI; anon_sym_LBRACK; anon_sym_RBRACK; anon_sym_RPAREN; sym_kEq;
   sym_kNeq; sym_kLte; sym_kGte; sym_kAdd; sym_kSub; sym_kMul; sym_kHat].

Definition syms_491 : list ts_symbol :=
  [sym_kRaiseAt; sym_kAnd; sym_kAs; sym_kDiv; sym_kExcept; sym_kFinally; sym_kIn; sym_kIs;
   sym_kMod; sym_kNot; sym_kOr; sym_kShl; sym_kShr; sym_kXor; anon_sym_SEMI; sym_kEq; sym_kNeq;
   sym_kLte; sym_kGte; sym_kAdd; sym_kSub; sym_kMul; sym_kHat].

Definition syms_492 : list ts_symbol :=
  [sym__literalStringMultiline; sym_kAnd; sym_kAs; sym_kDiv; sym_kEnd; sym_kIn; sym_kIs;
   sym_kMod; sym_kNot; sym_kOr; sym_kShl; sym_kShr; sym_kXor; anon_sym_SEMI; anon_sym_LBRACK;
   aux_sym__literalString_token1; anon_sym_POUND; anon_sym_DOT; sym_kEq; sym_kNeq; sym_kLte;
   sym_kGte; sym_kAdd; sym_kSub; sym_kMul; sym_kHat].

Definition syms_493 : list ts_symbol :=
  [sym_kRaiseAt; sym_kAnd; sym_kAs; sym_kDiv; sym_kExcept; sym_kFinally; sym_kIn; sym_kIs;
   sym_kMod; sym_kNot; sym_kOr; sym_kShl; sym_kShr; sym_kXor; anon_sym_SEMI; anon_sym_LBRACK;
   anon_sym_DOT; sym_kEq; sym_kNeq; sym_kLte; sym_kGte; sym_kAdd; sym_kSub; sym_kMul].

Definition syms_494 : list ts_symbol :=
  [sym_kRaiseAt; sym_kExcept; sym_kFinally; sym_kIn; sym_kIs; sym_kNot; anon_sym_SEMI;
   anon_sym_LBRACK; anon_sym_DOT; sym_kEq; sym_kNeq; sym_kLte; sym_kGte].

Definition syms_495 : list ts_symbol :=
  [sym_kRaiseAt; sym_kExcept; sym_kFinally; sym_kIn; sym_kIs; sym_kNot; sym_kOr; sym_kXor;
   anon_sym_SEMI; anon_sym_LBRACK; anon_sym_DOT; sym_kEq; sym_kNeq; sym_kLte; sym_kGte; sym_kAdd;
   sym_kSub].

Definition syms_496 : list ts_symbol :=
  [sym_kRaiseAt; sym_kExcept; sym_kFinally; anon_sym_SEMI; anon_sym_LBRACK; anon_sym_DOT].

Definition syms_497 : list ts_symbol :=
  [sym_kIndex; sym_kName; sym_kAnd; sym_kAs; sym_kDiv; sym_kIn; sym_kIs; sym_kMod; sym_kNot;
   sym_kOr; sym_kShl; sym_kShr; sym_kXor; anon_sym_SEMI; anon_sym_COMMA; sym_kEq; sym_kNeq;
   sym_kLte; sym_kGte; sym_kAdd; sym_kSub; sym_kMul; sym_kHat].

Definition syms_498 : list ts_symbol :=
  [sym_kIndex; sym_kName; sym_kAnd; sym_kAs; sym_kDiv; sym_kIn; sym_kIs; sym_kMod; sym_kNot;
   sym_kOr; sym_kShl; sym_kShr; sym_kXor; anon_sym_SEMI; anon_sym_COMMA; anon_sym_LBRACK;
   anon_sym_DOT; sym_kEq; sym_kNeq; sym_kLte; sym_kGte; sym_kAdd; sym_kSub; sym_kMul].

Definition syms_499 : list ts_symbol :=
  [sym_kIndex; sym_kName; sym_kIn; sym_kIs; sym_kNot; anon_sym_SEMI; anon_sym_COMMA;
   anon_sym_LBRACK; anon_sym_DOT; sym_kEq; sym_kNeq; sym_kLte; sym_kGte].

Definition syms_500 : list ts_symbol :=
  [sym_kIndex; sym_kName; sym_kIn; sym_kIs; sym_kNot; sym_kOr; sym_kXor; anon_sym_SEMI;
   anon_sym_COMMA; anon_sym_LBRACK; anon_sym_DOT; sym_kEq; sym_kNeq; sym_kLte; sym_kGte;
   sym_kAdd; sym_kSub].

Definition syms_501 : list ts_symbol :=
  [sym_kAnd; sym_kAs; sym_kDiv; sym_kIn; sym_kIs; sym_kMod; sym_kNot; sym_kOr; sym_kShl;
   sym_kShr; sym_kXor; anon_sym_SEMI; anon_sym_COLON; anon_sym_LBRACK; anon_sym_RBRACK;
   anon_sym_RPAREN; sym_kEq; sym_kNeq; sym_kLte; sym_kGte; sym_kAdd; sym_kSub; sym_kMul; sym_kHat].

Definition syms_502 : list ts_symbol :=
  [sym_kIndex; sym_kName; anon_sym_SEMI; anon_sym_COMMA; anon_sym_LBRACK; anon_sym_DOT].

Definition syms_503 : list ts_symbol :=
  [sym_kAnd; sym_kAs; sym_kDiv; sym_kElse; sym_kExcept; sym_kFinally; sym_kIn; sym_kIs; sym_kMod;
   sym_kNot; sym_kOr; sym_kShl; sym_kShr; sym_kXor; anon_sym_SEMI; anon_sym_LBRACK; sym_kEq;
   sym_kNeq; sym_kLte; sym_kGte; sym_kAdd; sym_kSub; sym_kMul; sym_kHat].

Definition syms_504 : list ts_symbol :=
  [sym_kRaiseAt; sym_kAnd; sym_kAs; sym_kDiv; sym_kExcept; sym_kFinally; sym_kIn; sym_kIs;
   sym_kMod; sym_kNot; sym_kOr; sym_kShl; sym_kShr; sym_kXor; anon_sym_SEMI; anon_sym_LBRACK;
   sym_kEq; sym_kNeq; sym_kLte; sym_kGte; sym_kAdd; sym_kSub; sym_kMul; sym_kHat].

Definition syms_505 : list ts_symbol :=
  [sym_kRaiseAt; sym_kElse; sym_kEnd; sym_kIn; sym_kIs; sym_kNot; sym_kOr; sym_kXor;
   anon_sym_SEMI; anon_sym_LBRACK; anon_sym_DOT; sym_kEq; sym_kNeq; sym_kLte; sym_kGte; sym_kAdd;
   sym_kSub].

Definition syms_506 : list ts_symbol :=
  [sym_kOf; anon_sym_SEMI; anon_sym_LBRACK; anon_sym_RBRACK; anon_sym_RPAREN; anon_sym_DOT].

Definition syms_507 : list ts_symbol :=
  [sym__literalStringMultiline; sym_kDelayed; sym_kAnd; sym_kAs; sym_kDiv; sym_kIn; sym_kIs;
   sym_kMod; sym_kNot; sym_kOr; sym_kShl; sym_kShr; sym_kXor; anon_sym_SEMI; anon_sym_LBRACK;
   aux_sym__literalString_token1; anon_sym_POUND; anon_sym_DOT; sym_kEq; sym_kNeq; sym_kLte;
   sym_kGte; sym_kAdd; sym_kSub; sym_kMul; sym_kHat].

Definition syms_508 : list ts_symbol :=
  [sym__literalStringMultiline; sym_kAnd; sym_kAs; sym_kDiv; sym_kElse; sym_kIn; sym_kIs;
   sym_kMod; sym_kNot; sym_kOr; sym_kShl; sym_kShr; sym_kXor; anon_sym_SEMI; anon_sym_LBRACK;
   aux_sym__literalString_token1; anon_sym_POUND; anon_sym_DOT; sym_kEq; sym_kNeq; sym_kLte;
   sym_kGte; sym_kAdd; sym_kSub; sym_kMul; sym_kHat].

Definition syms_509 : list ts_symbol :=
  [sym__literalStringMultiline; sym_kAnd; sym_kAs; sym_kDiv; sym_kDownto; sym_kIn; sym_kIs;
   sym_kMod; sym_kNot; sym_kOr; sym_kShl; sym_kShr; sym_kTo; sym_kXor; anon_sym_LBRACK;
   aux_sym__literalString_token1; anon_sym_POUND; anon_sym_DOT; sym_kEq; sym_kNeq; sym_kLte;
   sym_kGte; sym_kAdd; sym_kSub; sym_kMul; sym_kHat].

Definition syms_510 : list ts_symbol :=
  [sym_kRaiseAt; sym_kAnd; sym_kAs; sym_kDiv; sym_kElse; sym_kIn; sym_kIs; sym_kMod; sym_kNot;
   sym_kOr; sym_kShl; sym_kShr; sym_kUntil; sym_kXor; anon_sym_SEMI; anon_sym_LBRACK; sym_kEq;
   sym_kNeq; sym_kLte; sym_kGte; sym_kAdd; sym_kSub; sym_kMul; sym_kHat].

Definition syms_511 : list ts_symbol :=
  [sym_kRaiseAt; sym_kAnd; sym_kAs; sym_kDiv; sym_kElse; sym_kIn; sym_kIs; sym_kMod; sym_kNot;
   sym_kOr; sym_kShl; sym_kShr; sym_kUntil; sym_kXor; anon_sym_SEMI; sym_kEq; sym_kNeq; sym_kLte;
   sym_kGte; sym_kAdd; sym_kSub; sym_kMul; sym_kHat].

Definition syms_512 : list ts_symbol :=
  [sym_kRaiseAt; sym_kAnd; sym_kAs; sym_kDiv; sym_kElse; sym_kIn; sym_kIs; sym_kMod; sym_kNot;
   sym_kOr; sym_kShl; sym_kShr; sym_kUntil; sym_kXor; anon_sym_SEMI; anon_sym_LBRACK;
   anon_sym_DOT; sym_kEq; sym_kNeq; sym_kLte; sym_kGte; sym_kAdd; sym_kSub; sym_kMul].

Definition syms_513 : list ts_symbol :=
  [sym_kRaiseAt; sym_kElse; sym_kIn; sym_kIs; sym_kNot; sym_kUntil; anon_sym_SEMI;
   anon_sym_LBRACK; anon_sym_DOT; sym_kEq; sym_kNeq; sym_kLte; sym_kGte].

Definition syms_514 : list ts_symbol :=
  [sym_kRaiseAt; sym_kElse; sym_kIn; sym_kIs; sym_kNot; sym_kOr; sym_kUntil; sym_kXor;
   anon_sym_SEMI; anon_sym_LBRACK; anon_sym_DOT; sym_kEq; sym_kNeq; sym_kLte; sym_kGte; sym_kAdd;
   sym_kSub].

Definition syms_515 : list ts_symbol :=
  [sym__literalStringMultiline; sym_kAnd; sym_kAs; sym_kDiv; sym_kIn; sym_kIs; sym_kMod;
   sym_kNot; sym_kOr; sym_kShl; sym_kShr; sym_kUntil; sym_kXor; anon_sym_SEMI; anon_sym_LBRACK;
   aux_sym__literalString_token1; anon_sym_POUND; anon_sym_DOT; sym_kEq; sym_kNeq; sym_kLte;
   sym_kGte; sym_kAdd; sym_kSub; sym_kMul; sym_kHat].

Definition syms_516 : list ts_symbol :=
  [sym_kOtherwise; sym_kAnd; sym_kAs; sym_kDiv; sym_kElse; sym_kEnd; sym_kIn; sym_kIs; sym_kMod;
   sym_kNot; sym_kOr; sym_kShl; sym_kShr; sym_kXor; anon_sym_SEMI; sym_kEq; sym_kNeq; sym_kLte;
   sym_kGte; sym_kAdd; sym_kSub; sym_kMul; sym_kHat].

Definition syms_517 : list ts_symbol :=
  [sym_kRaiseAt; sym_kElse; sym_kUntil; anon_sym_SEMI; anon_sym_LBRACK; anon_sym_DOT].

Definition syms_518 : list ts_symbol :=
  [sym_kIn; sym_kIs; sym_kNot; sym_kEq; sym_kNeq; sym_kLte; sym_kGte; sym_kAssign;
   sym_kAssignAdd; sym_kAssignSub; sym_kAssignMul; sym_kAssignDiv].

Definition syms_519 : list ts_symbol :=
  [sym_identifier; sym_kGeneric; sym_kOperator; sym_kPublished; sym_kPublic; sym_kProtected;
   sym_kPrivate; sym_kStrict; sym_kRequired; sym_kOptional; sym_kDeprecated; sym_kCase;
   sym_kClass; sym_kConst; sym_kConstructor; sym_kDestructor; sym_kEnd; sym_kFunction;
   sym_kProcedure; sym_kProperty; sym_kResourcestring; sym_kThreadvar; sym_kType; sym_kVar;
   anon_sym_LBRACK; aux_sym_ppUsesBlock_token1; anon_sym_DOT; sym_kLt].

Definition syms_520 : list ts_symbol :=
  [anon_sym_DOT; sym_kLt; sym_kGt].

Definition syms_521 : list ts_symbol :=
  [sym_kAnd; sym_kAs; sym_kDiv; sym_kIn; sym_kIs; sym_kMod; sym_kNot; sym_kOr; sym_kShl;
   sym_kShr; sym_kXor; anon_sym_COLON; anon_sym_LBRACK; anon_sym_RBRACK; anon_sym_DOT_DOT;
   sym_kEq; sym_kNeq; sym_kLte; sym_kGte; sym_kAdd; sym_kSub; sym_kMul; sym_kHat].

Definition syms_522 : list ts_symbol :=
  [sym_kAnd; sym_kAs; sym_kDiv; sym_kElse; sym_kIn; sym_kIs; sym_kMod; sym_kNot; sym_kOr;
   sym_kShl; sym_kShr; sym_kUntil; sym_kXor; anon_sym_SEMI; sym_kEq; sym_kNeq; sym_kLte;
   sym_kGte; sym_kAdd; sym_kSub; sym_kMul; sym_kHat].

Definition syms_523 : list ts_symbol :=
  [sym_kRaiseAt; sym_kEnd; sym_kIn; sym_kIs; sym_kNot; anon_sym_SEMI; anon_sym_LBRACK;
   anon_sym_DOT; sym_kEq; sym_kNeq; sym_kLte; sym_kGte].

Definition syms_524 : list ts_symbol :=
  [sym_kOperator; sym_kAsm; sym_kBegin; sym_kClass; sym_kConst; sym_kConstructor;
   sym_kDestructor; sym_kExports; sym_kFunction; sym_kLabel; sym_kProcedure; sym_kResourcestring;
   sym_kThreadvar; sym_kType; sym_kUses; sym_kVar].

Definition syms_525 : list ts_symbol :=
  [sym_kOperator; sym_kBegin; sym_kClass; sym_kConst; sym_kConstructor; sym_kDestructor;
   sym_kEnd; sym_kExports; sym_kFunction; sym_kLabel; sym_kProcedure; sym_kResourcestring;
   sym_kThreadvar; sym_kType; sym_kUses; sym_kVar].

Definition syms_526 : list ts_symbol :=
  [sym_kRaiseAt; sym_kAnd; sym_kAs; sym_kDiv; sym_kIn; sym_kIs; sym_kMod; sym_kNot; sym_kOr;
   sym_kShl; sym_kShr; sym_kUntil; sym_kXor; anon_sym_SEMI; sym_kEq; sym_kNeq; sym_kLte;
   sym_kGte; sym_kAdd; sym_kSub; sym_kMul; sym_kHat].

Definition syms_527 : list ts_symbol :=
  [sym_kAnd; sym_kAs; sym_kDiv; sym_kElse; sym_kIn; sym_kIs; sym_kMod; sym_kNot; sym_kOr;
   sym_kShl; sym_kShr; sym_kUntil; sym_kXor; anon_sym_SEMI; anon_sym_LBRACK; sym_kEq; sym_kNeq;
   sym_kLte; sym_kGte; sym_kAdd; sym_kSub; sym_kMul; sym_kHat].

Definition syms_528 : list ts_symbol :=
  [sym_kRaiseAt; sym_kAnd; sym_kAs; sym_kDiv; sym_kIn; sym_kIs; sym_kMod; sym_kNot; sym_kOr;
   sym_kShl; sym_kShr; sym_kUntil; sym_kXor; anon_sym_SEMI; anon_sym_LBRACK; anon_sym_DOT;
   sym_kEq; sym_kNeq; sym_kLte; sym_kGte; sym_kAdd; sym_kSub; sym_kMul].

Definition syms_529 : list ts_symbol :=
  [sym_kRaiseAt; sym_kIn; sym_kIs; sym_kNot; sym_kUntil; anon_sym_SEMI; anon_sym_LBRACK;
   anon_sym_DOT; sym_kEq; sym_kNeq; sym_kLte; sym_kGte].

Definition syms_530 : list ts_symbol :=
  [sym_kRaiseAt; sym_kIn; sym_kIs; sym_kNot; sym_kOr; sym_kUntil; sym_kXor; anon_sym_SEMI;
   anon_sym_LBRACK; anon_sym_DOT; sym_kEq; sym_kNeq; sym_kLte; sym_kGte; sym_kAdd; sym_kSub].

Definition syms_531 : list ts_symbol :=
  [sym_kRaiseAt; sym_kAnd; sym_kAs; sym_kDiv; sym_kEnd; sym_kIn; sym_kIs; sym_kMod; sym_kNot;
   sym_kOr; sym_kShl; sym_kShr; sym_kXor; anon_sym_SEMI; anon_sym_LBRACK; anon_sym_DOT; sym_kEq;
   sym_kNeq; sym_kLte; sym_kGte; sym_kAdd; sym_kSub; sym_kMul].

Definition syms_532 : list ts_symbol :=
  [sym_kRaiseAt; sym_kUntil; anon_sym_SEMI; anon_sym_LBRACK; anon_sym_DOT].

Definition syms_533 : list ts_symbol :=
  [sym_kAnd; sym_kAs; sym_kDiv; sym_kIn; sym_kIs; sym_kMod; sym_kNot; sym_kOf; sym_kOr; sym_kShl;
   sym_kShr; sym_kXor; aux_sym_ppUsesBlock_token2; aux_sym_ppUsesBlock_token3; sym_kEq; sym_kNeq;
   sym_kLte; sym_kGte; sym_kAdd; sym_kSub; sym_kMul; sym_kHat].

Definition syms_534 : list ts_symbol :=
  [sym_kEnd; sym_kFinalization; sym_kImplementation; sym_kInitialization; sym_kInterface;
   anon_sym_SEMI].

Definition syms_535 : list ts_symbol :=
  [sym_kRaiseAt; sym_kAnd; sym_kAs; sym_kDiv; sym_kIn; sym_kIs; sym_kMod; sym_kNot; sym_kOr;
   sym_kShl; sym_kShr; sym_kUntil; sym_kXor; anon_sym_SEMI; anon_sym_LBRACK; sym_kEq; sym_kNeq;
   sym_kLte; sym_kGte; sym_kAdd; sym_kSub; sym_kMul; sym_kHat].

Definition syms_536 : list ts_symbol :=
  [sym_kAbsolute; sym_kAnd; sym_kAs; sym_kDiv; sym_kIn; sym_kIs; sym_kMod; sym_kNot; sym_kOf;
   sym_kOr; sym_kShl; sym_kShr; sym_kXor; anon_sym_SEMI; sym_kEq; sym_kNeq; sym_kLte; sym_kGte;
   sym_kAdd; sym_kSub; sym_kMul; sym_kHat].

Definition syms_537 : list ts_symbol :=
  [sym_kAnd; sym_kAs; sym_kDiv; sym_kExcept; sym_kFinally; sym_kIn; sym_kIs; sym_kMod; sym_kNot;
   sym_kOr; sym_kShl; sym_kShr; sym_kXor; anon_sym_SEMI; anon_sym_LBRACK; sym_kEq; sym_kNeq;
   sym_kLte; sym_kGte; sym_kAdd; sym_kSub; sym_kMul; sym_kHat].

Definition syms_538 : list ts_symbol :=
  [sym_kAnd; sym_kAs; sym_kDiv; sym_kElse; sym_kIn; sym_kIs; sym_kMod; sym_kNot; sym_kOr;
   sym_kShl; sym_kShr; sym_kUntil; sym_kXor; anon_sym_SEMI; anon_sym_LBRACK; anon_sym_DOT;
   sym_kEq; sym_kNeq; sym_kLte; sym_kGte; sym_kAdd; sym_kSub; sym_kMul].

Definition syms_539 : list ts_symbol :=
  [sym_kRaiseAt; sym_kAnd; sym_kAs; sym_kDiv; sym_kElse; sym_kIn; sym_kIs; sym_kMod; sym_kNot;
   sym_kOr; sym_kShl; sym_kShr; sym_kXor; anon_sym_SEMI; sym_kEq; sym_kNeq; sym_kLte; sym_kGte;
   sym_kAdd; sym_kSub; sym_kMul; sym_kHat].

Definition syms_540 : list ts_symbol :=
  [sym_kElse; sym_kIn; sym_kIs; sym_kNot; sym_kUntil; anon_sym_SEMI; anon_sym_LBRACK;
   anon_sym_DOT; sym_kEq; sym_kNeq; sym_kLte; sym_kGte].

Definition syms_541 : list ts_symbol :=
  [sym_kAnd; sym_kAs; sym_kDiv; sym_kElse; sym_kEnd; sym_kIn; sym_kIs; sym_kMod; sym_kNot;
   sym_kOr; sym_kShl; sym_kShr; sym_kXor; anon_sym_SEMI; anon_sym_LBRACK; sym_kEq; sym_kNeq;
   sym_kLte; sym_kGte; sym_kAdd; sym_kSub; sym_kMul; sym_kHat].

Definition syms_542 : list ts_symbol :=
  [sym_kRaiseAt; sym_kAnd; sym_kAs; sym_kDiv; sym_kElse; sym_kIn; sym_kIs; sym_kMod; sym_kNot;
   sym_kOr; sym_kShl; sym_kShr; sym_kXor; anon_sym_SEMI; anon_sym_LBRACK; anon_sym_DOT; sym_kEq;
   sym_kNeq; sym_kLte; sym_kGte; sym_kAdd; sym_kSub; sym_kMul].

Definition syms_543 : list ts_symbol :=
  [sym_kRaiseAt; sym_kElse; sym_kIn; sym_kIs; sym_kNot; anon_sym_SEMI; anon_sym_LBRACK;
   anon_sym_DOT; sym_kEq; sym_kNeq; sym_kLte; sym_kGte].

Definition syms_544 : list ts_symbol :=
  [sym_kAnd; sym_kAs; sym_kDiv; sym_kIn; sym_kIs; sym_kMod; sym_kNot; sym_kOf; sym_kOr; sym_kShl;
   sym_kShr; sym_kXor; anon_sym_LBRACK; aux_sym_ppUsesBlock_token2; aux_sym_ppUsesBlock_token3;
   anon_sym_DOT; sym_kEq; sym_kNeq; sym_kLte; sym_kGte; sym_kAdd; sym_kSub; sym_kMul].

Definition syms_545 : list ts_symbol :=
  [sym_kRaiseAt; sym_kElse; sym_kIn; sym_kIs; sym_kNot; sym_kOr; sym_kXor; anon_sym_SEMI;
   anon_sym_LBRACK; anon_sym_DOT; sym_kEq; sym_kNeq; sym_kLte; sym_kGte; sym_kAdd; sym_kSub].

Definition syms_546 : list ts_symbol :=
  [sym_kElse; sym_kIn; sym_kIs; sym_kNot; sym_kOr; sym_kUntil; sym_kXor; anon_sym_SEMI;
   anon_sym_LBRACK; anon_sym_DOT; sym_kEq; sym_kNeq; sym_kLte; sym_kGte; sym_kAdd; sym_kSub].

Definition syms_547 : list ts_symbol :=
  [sym_kAnd; sym_kAs; sym_kDiv; sym_kIn; sym_kIs; sym_kMod; sym_kNot; sym_kOr; sym_kShl;
   sym_kShr; sym_kXor; anon_sym_SEMI; anon_sym_RBRACK; anon_sym_RPAREN; sym_kEq; sym_kNeq;
   sym_kLte; sym_kGte; sym_kAdd; sym_kSub; sym_kMul; sym_kHat].

Definition syms_548 : list ts_symbol :=
  [sym_kAbsolute; sym_kAnd; sym_kAs; sym_kDiv; sym_kIn; sym_kIs; sym_kMod; sym_kNot; sym_kOf;
   sym_kOr; sym_kShl; sym_kShr; sym_kXor; anon_sym_SEMI; anon_sym_LBRACK; anon_sym_DOT; sym_kEq;
   sym_kNeq; sym_kLte; sym_kGte; sym_kAdd; sym_kSub; sym_kMul].

Definition syms_549 : list ts_symbol :=
  [sym_kIn; sym_kIs; sym_kNot; sym_kOf; anon_sym_LBRACK; aux_sym_ppUsesBlock_token2;
   aux_sym_ppUsesBlock_token3; anon_sym_DOT; sym_kEq; sym_kNeq; sym_kLte; sym_kGte].

Definition syms_550 : list ts_symbol :=
  [sym_kAbsolute; sym_kIn; sym_kIs; sym_kNot; sym_kOf; anon_sym_SEMI; anon_sym_LBRACK;
   anon_sym_DOT; sym_kEq; sym_kNeq; sym_kLte; sym_kGte].

Definition syms_551 : list ts_symbol :=
  [sym_kAbsolute; sym_kIn; sym_kIs; sym_kNot; sym_kOf; sym_kOr; sym_kXor; anon_sym_SEMI;
   anon_sym_LBRACK; anon_sym_DOT; sym_kEq; sym_kNeq; sym_kLte; sym_kGte; sym_kAdd; sym_kSub].

Definition syms_552 : list ts_symbol :=
  [sym_kRaiseAt; sym_kElse; anon_sym_SEMI; anon_sym_LBRACK; anon_sym_DOT].

Definition syms_553 : list ts_symbol :=
  [sym_kOperator; sym_kBegin; sym_kClass; sym_kConst; sym_kConstructor; sym_kDestructor;
   sym_kExports; sym_kFunction; sym_kLabel; sym_kProcedure; sym_kResourcestring; sym_kThreadvar;
   sym_kType; sym_kUses; sym_kVar; ts_builtin_sym_end].

Definition syms_554 : list ts_symbol :=
  [sym_kIn; sym_kIs; sym_kNot; sym_kOf; sym_kOr; sym_kXor; anon_sym_LBRACK;
   aux_sym_ppUsesBlock_token2; aux_sym_ppUsesBlock_token3; anon_sym_DOT; sym_kEq; sym_kNeq;
   sym_kLte; sym_kGte; sym_kAdd; sym_kSub].

Definition syms_555 : list ts_symbol :=
  [sym_kElse; sym_kUntil; anon_sym_SEMI; anon_sym_LBRACK; anon_sym_DOT].

Definition syms_556 : list ts_symbol :=
  [sym_kOf; anon_sym_LBRACK; aux_sym_ppUsesBlock_token2; aux_sym_ppUsesBlock_token3; anon_sym_DOT].

Definition syms_557 : list ts_symbol :=
  [sym_kAnd; sym_kAs; sym_kDiv; sym_kIn; sym_kIs; sym_kMod; sym_kNot; sym_kOf; sym_kOr; sym_kShl;
   sym_kShr; sym_kXor; anon_sym_LBRACK; aux_sym_ppUsesBlock_token2; aux_sym_ppUsesBlock_token3;
   sym_kEq; sym_kNeq; sym_kLte; sym_kGte; sym_kAdd; sym_kSub; sym_kMul; sym_kHat].

Definition syms_558 : list ts_symbol :=
  [sym_kIndex; sym_kName; sym_kAnd; sym_kAs; sym_kDiv; sym_kIn; sym_kIs; sym_kMod; sym_kNot;
   sym_kOr; sym_kShl; sym_kShr; sym_kXor; anon_sym_SEMI; anon_sym_LBRACK; sym_kEq; sym_kNeq;
   sym_kLte; sym_kGte; sym_kAdd; sym_kSub; sym_kMul; sym_kHat].

Definition syms_559 : list ts_symbol :=
  [sym_kAnd; sym_kAs; sym_kDiv; sym_kIn; sym_kIs; sym_kMod; sym_kNot; sym_kOr; sym_kShl;
   sym_kShr; sym_kXor; anon_sym_SEMI; aux_sym_ppUsesBlock_token2; aux_sym_ppUsesBlock_token3;
   sym_kEq; sym_kNeq; sym_kLte; sym_kGte; sym_kAdd; sym_kSub; sym_kMul; sym_kHat].

Definition syms_560 : list ts_symbol :=
  [sym_kAnd; sym_kAs; sym_kDiv; sym_kElse; sym_kEnd; sym_kIn; sym_kIs; sym_kMod; sym_kNot;
   sym_kOr; sym_kShl; sym_kShr; sym_kXor; anon_sym_SEMI; sym_kEq; sym_kNeq; sym_kLte; sym_kGte;
   sym_kAdd; sym_kSub; sym_kMul; sym_kHat].

Definition syms_561 : list ts_symbol :=
  [sym_kAnd; sym_kAs; sym_kDiv; sym_kIn; sym_kIs; sym_kMod; sym_kNot; sym_kOr; sym_kShl;
   sym_kShr; sym_kXor; anon_sym_SEMI; anon_sym_LBRACK; aux_sym_ppUsesBlock_token2;
   aux_sym_ppUsesBlock_token3; sym_kEq; sym_kNeq; sym_kLte; sym_kGte; sym_kAdd; sym_kSub;
   sym_kMul; sym_kHat].

Definition syms_562 : list ts_symbol :=
  [sym_kAnd; sym_kAs; sym_kDiv; sym_kIn; sym_kIs; sym_kMod; sym_kNot; sym_kOr; sym_kShl;
   sym_kShr; sym_kXor; anon_sym_SEMI; anon_sym_COMMA; anon_sym_LBRACK; anon_sym_RPAREN;
   anon_sym_DOT; sym_kEq; sym_kNeq; sym_kLte; sym_kGte; sym_kAdd; sym_kSub; sym_kMul; sym_kHat].

Definition syms_563 : list ts_symbol :=
  [anon_sym_RBRACK; anon_sym_RPAREN].

Definition syms_564 : list ts_symbol :=
  [sym_kAnd; sym_kAs; sym_kDiv; sym_kIn; sym_kIs; sym_kMod; sym_kNot; sym_kOr; sym_kShl;
   sym_kShr; sym_kXor; anon_sym_SEMI; anon_sym_LBRACK; aux_sym_ppUsesBlock_token2;
   aux_sym_ppUsesBlock_token3; anon_sym_DOT; sym_kEq; sym_kNeq; sym_kLte; sym_kGte; sym_kAdd;
   sym_kSub; sym_kMul].

Definition syms_565 : list ts_symbol :=
  [sym_kIn; sym_kIs; sym_kNot; anon_sym_SEMI; anon_sym_LBRACK; aux_sym_ppUsesBlock_token2;
   aux_sym_ppUsesBlock_token3; anon_sym_DOT; sym_kEq; sym_kNeq; sym_kLte; sym_kGte].

Definition syms_566 : list ts_symbol :=
  [sym_kIn; sym_kIs; sym_kNot; sym_kOr; sym_kXor; anon_sym_SEMI; anon_sym_LBRACK;
   aux_sym_ppUsesBlock_token2; aux_sym_ppUsesBlock_token3; anon_sym_DOT; sym_kEq; sym_kNeq;
   sym_kLte; sym_kGte; sym_kAdd; sym_kSub].

Definition syms_567 : list ts_symbol :=
  [sym_kAbsolute; sym_kAnd; sym_kAs; sym_kDiv; sym_kIn; sym_kIs; sym_kMod; sym_kNot; sym_kOf;
   sym_kOr; sym_kShl; sym_kShr; sym_kXor; anon_sym_SEMI; anon_sym_LBRACK; sym_kEq; sym_kNeq;
   sym_kLte; sym_kGte; sym_kAdd; sym_kSub; sym_kMul; sym_kHat].

Definition syms_568 : list ts_symbol :=
  [anon_sym_SEMI; anon_sym_LBRACK; aux_sym_ppUsesBlock_token2; aux_sym_ppUsesBlock_token3;
   anon_sym_DOT].

Definition syms_569 : list ts_symbol :=
  [sym_kAnd; sym_kAs; sym_kDiv; sym_kIn; sym_kIs; sym_kMod; sym_kNot; sym_kOr; sym_kShl;
   sym_kShr; sym_kXor; anon_sym_COMMA; anon_sym_LBRACK; anon_sym_RBRACK; anon_sym_DOT_DOT;
   sym_kEq; sym_kNeq; sym_kLte; sym_kGte; sym_kAdd; sym_kSub; sym_kMul; sym_kHat].

Definition syms_570 : list ts_symbol :=
  [sym_kAnd; sym_kAs; sym_kDiv; sym_kIn; sym_kIs; sym_kMod; sym_kNot; sym_kOr; sym_kShl;
   sym_kShr; sym_kXor; anon_sym_DOT_DOT; sym_kEq; sym_kNeq; sym_kLte; sym_kGte; sym_kAdd;
   sym_kSub; sym_kMul; sym_kHat].

Definition syms_571 : list ts_symbol :=
  [sym_kAnd; sym_kAs; sym_kDiv; sym_kElse; sym_kEnd; sym_kIn; sym_kIs; sym_kMod; sym_kNot;
   sym_kOr; sym_kShl; sym_kShr; sym_kXor; anon_sym_SEMI; anon_sym_LBRACK; anon_sym_DOT; sym_kEq;
   sym_kNeq; sym_kLte; sym_kGte; sym_kAdd; sym_kSub; sym_kMul].

Definition syms_572 : list ts_symbol :=
  [sym_kElse; sym_kEnd; sym_kIn; sym_kIs; sym_kNot; anon_sym_SEMI; anon_sym_LBRACK; anon_sym_DOT;
   sym_kEq; sym_kNeq; sym_kLte; sym_kGte].

Definition syms_573 : list ts_symbol :=
  [sym_kElse; sym_kEnd; sym_kIn; sym_kIs; sym_kNot; sym_kOr; sym_kXor; anon_sym_SEMI;
   anon_sym_LBRACK; anon_sym_DOT; sym_kEq; sym_kNeq; sym_kLte; sym_kGte; sym_kAdd; sym_kSub].

Definition syms_574 : list ts_symbol :=
  [sym_kAbsolute; sym_kOf; anon_sym_SEMI; anon_sym_LBRACK; anon_sym_DOT].

Definition syms_575 : list ts_symbol :=
  [sym_kRaiseAt; sym_kAnd; sym_kAs; sym_kDiv; sym_kEnd; sym_kIn; sym_kIs; sym_kMod; sym_kNot;
   sym_kOr; sym_kShl; sym_kShr; sym_kXor; anon_sym_SEMI; sym_kEq; sym_kNeq; sym_kLte; sym_kGte;
   sym_kAdd; sym_kSub; sym_kMul; sym_kHat].

Definition syms_576 : list ts_symbol :=
  [sym_kElse; sym_kEnd; anon_sym_SEMI; anon_sym_LBRACK; anon_sym_DOT].

Definition syms_577 : list ts_symbol :=
  [sym_kRaiseAt; sym_kEnd; sym_kIn; sym_kIs; sym_kNot; sym_kOr; sym_kXor; anon_sym_SEMI;
   anon_sym_LBRACK; anon_sym_DOT; sym_kEq; sym_kNeq; sym_kLte; sym_kGte; sym_kAdd; sym_kSub].

Definition syms_578 : list ts_symbol :=
  [sym_kRaiseAt; sym_kEnd; anon_sym_SEMI; anon_sym_LBRACK; anon_sym_DOT].

Definition syms_579 : list ts_symbol :=
  [sym__literalStringMultiline; sym_kAnd; sym_kAs; sym_kDiv; sym_kIn; sym_kIs; sym_kMod;
   sym_kNot; sym_kOr; sym_kShl; sym_kShr; sym_kThen; sym_kXor; anon_sym_LBRACK;
   aux_sym__literalString_token1; anon_sym_POUND; anon_sym_DOT; sym_kEq; sym_kNeq; sym_kLte;
   sym_kGte; sym_kAdd; sym_kSub; sym_kMul; sym_kHat].

Definition syms_580 : list ts_symbol :=
  [sym_kRaiseAt; sym_kAnd; sym_kAs; sym_kDiv; sym_kElse; sym_kIn; sym_kIs; sym_kMod; sym_kNot;
   sym_kOr; sym_kShl; sym_kShr; sym_kXor; anon_sym_SEMI; anon_sym_LBRACK; sym_kEq; sym_kNeq;
   sym_kLte; sym_kGte; sym_kAdd; sym_kSub; sym_kMul; sym_kHat].

Definition syms_581 : list ts_symbol :=
  [sym_kAnd; sym_kAs; sym_kDiv; sym_kIn; sym_kIs; sym_kMod; sym_kNot; sym_kOr; sym_kShl;
   sym_kShr; sym_kXor; anon_sym_SEMI; anon_sym_LBRACK; anon_sym_RBRACK; anon_sym_RPAREN; sym_kEq;
   sym_kNeq; sym_kLte; sym_kGte; sym_kAdd; sym_kSub; sym_kMul; sym_kHat].

Definition syms_582 : list ts_symbol :=
  [sym_kExcept; sym_kFinally; anon_sym_SEMI; anon_sym_LBRACK; anon_sym_DOT].

Definition syms_583 : list ts_symbol :=
  [sym_kAnd; sym_kAs; sym_kDiv; sym_kIn; sym_kIs; sym_kMod; sym_kNot; sym_kOr; sym_kShl;
   sym_kShr; sym_kXor; anon_sym_SEMI; anon_sym_LBRACK; anon_sym_RBRACK; anon_sym_RPAREN;
   anon_sym_DOT; sym_kEq; sym_kNeq; sym_kLte; sym_kGte; sym_kAdd; sym_kSub; sym_kMul].

Definition syms_584 : list ts_symbol :=
  [sym_kIn; sym_kIs; sym_kNot; anon_sym_SEMI; anon_sym_LBRACK; anon_sym_RBRACK; anon_sym_RPAREN;
   anon_sym_DOT; sym_kEq; sym_kNeq; sym_kLte; sym_kGte].

Definition syms_585 : list ts_symbol :=
  [sym_kIn; sym_kIs; sym_kNot; sym_kOr; sym_kXor; anon_sym_SEMI; anon_sym_LBRACK;
   anon_sym_RBRACK; anon_sym_RPAREN; anon_sym_DOT; sym_kEq; sym_kNeq; sym_kLte; sym_kGte;
   sym_kAdd; sym_kSub].

Definition syms_586 : list ts_symbol :=
  [anon_sym_SEMI; anon_sym_LBRACK; anon_sym_RBRACK; anon_sym_RPAREN; anon_sym_DOT].

Definition syms_587 : list ts_symbol :=
  [sym_kRaiseAt; sym_kAnd; sym_kAs; sym_kDiv; sym_kEnd; sym_kIn; sym_kIs; sym_kMod; sym_kNot;
   sym_kOr; sym_kShl; sym_kShr; sym_kXor; anon_sym_SEMI; anon_sym_LBRACK; sym_kEq; sym_kNeq;
   sym_kLte; sym_kGte; sym_kAdd; sym_kSub; sym_kMul; sym_kHat].

Definition syms_588 : list ts_symbol :=
  [sym_kAnd; sym_kAs; sym_kDiv; sym_kExcept; sym_kFinally; sym_kIn; sym_kIs; sym_kMod; sym_kNot;
   sym_kOr; sym_kShl; sym_kShr; sym_kXor; anon_sym_SEMI; sym_kEq; sym_kNeq; sym_kLte; sym_kGte;
   sym_kAdd; sym_kSub; sym_kMul; sym_kHat].

Definition syms_589 : list ts_symbol :=
  [sym_kAnd; sym_kAs; sym_kDiv; sym_kIn; sym_kIs; sym_kMod; sym_kNot; sym_kOr; sym_kShl;
   sym_kShr; sym_kXor; anon_sym_SEMI; anon_sym_LBRACK; anon_sym_RBRACK; anon_sym_RPAREN;
   anon_sym_DOT; sym_kEq; sym_kNeq; sym_kLte; sym_kGte; sym_kAdd; sym_kSub; sym_kMul; sym_kHat].

Definition syms_590 : list ts_symbol :=
  [sym_kAnd; sym_kAs; sym_kDiv; sym_kExcept; sym_kFinally; sym_kIn; sym_kIs; sym_kMod; sym_kNot;
   sym_kOr; sym_kShl; sym_kShr; sym_kXor; anon_sym_SEMI; anon_sym_LBRACK; anon_sym_DOT; sym_kEq;
   sym_kNeq; sym_kLte; sym_kGte; sym_kAdd; sym_kSub; sym_kMul].

Definition syms_591 : list ts_symbol :=
  [sym_kExcept; sym_kFinally; sym_kIn; sym_kIs; sym_kNot; anon_sym_SEMI; anon_sym_LBRACK;
   anon_sym_DOT; sym_kEq; sym_kNeq; sym_kLte; sym_kGte].

Definition syms_592 : list ts_symbol :=
  [sym_kExcept; sym_kFinally; sym_kIn; sym_kIs; sym_kNot; sym_kOr; sym_kXor; anon_sym_SEMI;
   anon_sym_LBRACK; anon_sym_DOT; sym_kEq; sym_kNeq; sym_kLte; sym_kGte; sym_kAdd; sym_kSub].

Definition syms_593 : list ts_symbol :=
  [sym_kAnd; sym_kAs; sym_kDiv; sym_kIn; sym_kIs; sym_kMod; sym_kNot; sym_kOr; sym_kShl;
   sym_kShr; sym_kXor; sym_kEq; sym_kNeq; sym_kLte; sym_kGte; sym_kAdd; sym_kSub; sym_kMul;
   sym_kHat].

Definition syms_594 : list ts_symbol :=
  [sym_kAnd; sym_kAs; sym_kDiv; sym_kElse; sym_kIn; sym_kIs; sym_kMod; sym_kNot; sym_kOr;
   sym_kShl; sym_kShr; sym_kXor; anon_sym_SEMI; sym_kEq; sym_kNeq; sym_kLte; sym_kGte; sym_kAdd;
   sym_kSub; sym_kMul; sym_kHat].

Definition syms_595 : list ts_symbol :=
  [sym_kAnd; sym_kAs; sym_kDiv; sym_kElse; sym_kIn; sym_kIs; sym_kMod; sym_kNot; sym_kOr;
   sym_kShl; sym_kShr; sym_kXor; anon_sym_SEMI; anon_sym_LBRACK; sym_kEq; sym_kNeq; sym_kLte;
   sym_kGte; sym_kAdd; sym_kSub; sym_kMul; sym_kHat].

Definition syms_596 : list ts_symbol :=
  [sym_kEq; sym_kNeq; sym_kLte; sym_kGte].

Definition syms_597 : list ts_symbol :=
  [sym_kRaiseAt; sym_kAnd; sym_kAs; sym_kDiv; sym_kIn; sym_kIs; sym_kMod; sym_kNot; sym_kOr;
   sym_kShl; sym_kShr; sym_kXor; anon_sym_SEMI; sym_kEq; sym_kNeq; sym_kLte; sym_kGte; sym_kAdd;
   sym_kSub; sym_kMul; sym_kHat].

Definition syms_598 : list ts_symbol :=
  [sym_kRaiseAt; sym_kAnd; sym_kAs; sym_kDiv; sym_kIn; sym_kIs; sym_kMod; sym_kNot; sym_kOr;
   sym_kShl; sym_kShr; sym_kXor; anon_sym_SEMI; anon_sym_LBRACK; anon_sym_DOT; sym_kEq; sym_kNeq;
   sym_kLte; sym_kGte; sym_kAdd; sym_kSub; sym_kMul].

Definition syms_599 : list ts_symbol :=
  [sym_kRaiseAt; sym_kIn; sym_kIs; sym_kNot; anon_sym_SEMI; anon_sym_LBRACK; anon_sym_DOT;
   sym_kEq; sym_kNeq; sym_kLte; sym_kGte].

Definition syms_600 : list ts_symbol :=
  [sym_kRaiseAt; sym_kIn; sym_kIs; sym_kNot; sym_kOr; sym_kXor; anon_sym_SEMI; anon_sym_LBRACK;
   anon_sym_DOT; sym_kEq; sym_kNeq; sym_kLte; sym_kGte; sym_kAdd; sym_kSub].

Definition syms_601 : list ts_symbol :=
  [sym_kRaiseAt; anon_sym_SEMI; anon_sym_LBRACK; anon_sym_DOT].

Definition syms_602 : list ts_symbol :=
  [sym_kAnd; sym_kAs; sym_kDiv; sym_kElse; sym_kIn; sym_kIs; sym_kMod; sym_kNot; sym_kOr;
   sym_kShl; sym_kShr; sym_kXor; anon_sym_SEMI; anon_sym_LBRACK; anon_sym_DOT; sym_kEq; sym_kNeq;
   sym_kLte; sym_kGte; sym_kAdd; sym_kSub; sym_kMul].

Definition syms_603 : list ts_symbol :=
  [sym_kElse; sym_kIn; sym_kIs; sym_kNot; anon_sym_SEMI; anon_sym_LBRACK; anon_sym_DOT; sym_kEq;
   sym_kNeq; sym_kLte; sym_kGte].

Definition syms_604 : list ts_symbol :=
  [sym_kElse; sym_kIn; sym_kIs; sym_kNot; sym_kOr; sym_kXor; anon_sym_SEMI; anon_sym_LBRACK;
   anon_sym_DOT; sym_kEq; sym_kNeq; sym_kLte; sym_kGte; sym_kAdd; sym_kSub].

Definition syms_605 : list ts_symbol :=
  [sym_kRaiseAt; sym_kAnd; sym_kAs; sym_kDiv; sym_kIn; sym_kIs; sym_kMod; sym_kNot; sym_kOr;
   sym_kShl; sym_kShr; sym_kXor; anon_sym_SEMI; anon_sym_LBRACK; sym_kEq; sym_kNeq; sym_kLte;
   sym_kGte; sym_kAdd; sym_kSub; sym_kMul; sym_kHat].

Definition syms_606 : list ts_symbol :=
  [sym_kAbsolute; sym_kAnd; sym_kAs; sym_kDiv; sym_kIn; sym_kIs; sym_kMod; sym_kNot; sym_kOr;
   sym_kShl; sym_kShr; sym_kXor; anon_sym_SEMI; sym_kEq; sym_kNeq; sym_kLte; sym_kGte; sym_kAdd;
   sym_kSub; sym_kMul; sym_kHat].

Definition syms_607 : list ts_symbol :=
  [sym_kAbsolute; sym_kAnd; sym_kAs; sym_kDiv; sym_kIn; sym_kIs; sym_kMod; sym_kNot; sym_kOr;
   sym_kShl; sym_kShr; sym_kXor; anon_sym_SEMI; anon_sym_LBRACK; anon_sym_DOT; sym_kEq; sym_kNeq;
   sym_kLte; sym_kGte; sym_kAdd; sym_kSub; sym_kMul].

Definition syms_608 : list ts_symbol :=
  [sym_kAbsolute; sym_kIn; sym_kIs; sym_kNot; anon_sym_SEMI; anon_sym_LBRACK; anon_sym_DOT;
   sym_kEq; sym_kNeq; sym_kLte; sym_kGte].

Definition syms_609 : list ts_symbol :=
  [sym_kAnd; sym_kAs; sym_kDiv; sym_kEnd; sym_kIn; sym_kIs; sym_kMod; sym_kNot; sym_kOr;
   sym_kShl; sym_kShr; sym_kXor; anon_sym_SEMI; sym_kEq; sym_kNeq; sym_kLte; sym_kGte; sym_kAdd;
   sym_kSub; sym_kMul; sym_kHat].

Definition syms_610 : list ts_symbol :=
  [sym_kAbsolute; sym_kIn; sym_kIs; sym_kNot; sym_kOr; sym_kXor; anon_sym_SEMI; anon_sym_LBRACK;
   anon_sym_DOT; sym_kEq; sym_kNeq; sym_kLte; sym_kGte; sym_kAdd; sym_kSub].

Definition syms_611 : list ts_symbol :=
  [sym_kAnd; sym_kAs; sym_kDiv; sym_kEnd; sym_kIn; sym_kIs; sym_kMod; sym_kNot; sym_kOr;
   sym_kShl; sym_kShr; sym_kXor; anon_sym_SEMI; anon_sym_LBRACK; anon_sym_DOT; sym_kEq; sym_kNeq;
   sym_kLte; sym_kGte; sym_kAdd; sym_kSub; sym_kMul].

Definition syms_612 : list ts_symbol :=
  [sym_kEnd; sym_kIn; sym_kIs; sym_kNot; anon_sym_SEMI; anon_sym_LBRACK; anon_sym_DOT; sym_kEq;
   sym_kNeq; sym_kLte; sym_kGte].

Definition syms_613 : list ts_symbol :=
  [sym_kEnd; sym_kIn; sym_kIs; sym_kNot; sym_kOr; sym_kXor; anon_sym_SEMI; anon_sym_LBRACK;
   anon_sym_DOT; sym_kEq; sym_kNeq; sym_kLte; sym_kGte; sym_kAdd; sym_kSub].

Definition syms_614 : list ts_symbol :=
  [sym_kEnd; anon_sym_SEMI; anon_sym_LBRACK; anon_sym_DOT].

Definition syms_615 : list ts_symbol :=
  [sym_kAbsolute; anon_sym_SEMI; anon_sym_LBRACK; anon_sym_DOT].

Definition syms_616 : list ts_symbol :=
  [sym_kAnd; sym_kAs; sym_kDiv; sym_kIn; sym_kIs; sym_kMod; sym_kNot; sym_kOr; sym_kShl;
   sym_kShr; sym_kXor; anon_sym_COMMA; anon_sym_LBRACK; anon_sym_RBRACK; anon_sym_DOT; sym_kEq;
   sym_kNeq; sym_kLte; sym_kGte; sym_kAdd; sym_kSub; sym_kMul; sym_kHat].

Definition syms_617 : list ts_symbol :=
  [sym_kAnd; sym_kAs; sym_kDiv; sym_kEnd; sym_kIn; sym_kIs; sym_kMod; sym_kNot; sym_kOr;
   sym_kShl; sym_kShr; sym_kXor; anon_sym_SEMI; anon_sym_LBRACK; sym_kEq; sym_kNeq; sym_kLte;
   sym_kGte; sym_kAdd; sym_kSub; sym_kMul; sym_kHat].

Definition syms_618 : list ts_symbol :=
  [sym_kAnd; sym_kAs; sym_kDiv; sym_kIn; sym_kIs; sym_kMod; sym_kNot; sym_kOr; sym_kShl;
   sym_kShr; sym_kXor; anon_sym_SEMI; anon_sym_COLON; anon_sym_COMMA; anon_sym_RBRACK;
   anon_sym_RPAREN; sym_kEq; sym_kNeq; sym_kLte; sym_kGte; sym_kAdd; sym_kSub; sym_kMul].

Definition syms_619 : list ts_symbol :=
  [sym_kIn; sym_kIs; sym_kNot; anon_sym_SEMI; anon_sym_COLON; anon_sym_COMMA; anon_sym_RBRACK;
   anon_sym_RPAREN; sym_kEq; sym_kNeq; sym_kLte; sym_kGte].

Definition syms_620 : list ts_symbol :=
  [sym_kIn; sym_kIs; sym_kNot; sym_kOr; sym_kXor; anon_sym_SEMI; anon_sym_COLON; anon_sym_COMMA;
   anon_sym_RBRACK; anon_sym_RPAREN; sym_kEq; sym_kNeq; sym_kLte; sym_kGte; sym_kAdd; sym_kSub].

Definition syms_621 : list ts_symbol :=
  [anon_sym_SEMI; anon_sym_COLON; anon_sym_COMMA; anon_sym_RBRACK; anon_sym_RPAREN].

Definition syms_622 : list ts_symbol :=
  [sym_kAnd; sym_kAs; sym_kDiv; sym_kDo; sym_kIn; sym_kIs; sym_kMod; sym_kNot; sym_kOr; sym_kShl;
   sym_kShr; sym_kXor; anon_sym_COMMA; sym_kEq; sym_kNeq; sym_kLte; sym_kGte; sym_kAdd; sym_kSub;
   sym_kMul; sym_kHat].

Definition syms_623 : list ts_symbol :=
  [sym_kAnd; sym_kAs; sym_kDiv; sym_kDo; sym_kIn; sym_kIs; sym_kMod; sym_kNot; sym_kOr; sym_kShl;
   sym_kShr; sym_kXor; anon_sym_COMMA; anon_sym_LBRACK; anon_sym_DOT; sym_kEq; sym_kNeq;
   sym_kLte; sym_kGte; sym_kAdd; sym_kSub; sym_kMul].

Definition syms_624 : list ts_symbol :=
  [sym_kDo; sym_kIn; sym_kIs; sym_kNot; anon_sym_COMMA; anon_sym_LBRACK; anon_sym_DOT; sym_kEq;
   sym_kNeq; sym_kLte; sym_kGte].

Definition syms_625 : list ts_symbol :=
  [sym_kDo; sym_kIn; sym_kIs; sym_kNot; sym_kOr; sym_kXor; anon_sym_COMMA; anon_sym_LBRACK;
   anon_sym_DOT; sym_kEq; sym_kNeq; sym_kLte; sym_kGte; sym_kAdd; sym_kSub].

Definition syms_626 : list ts_symbol :=
  [sym_kDo; anon_sym_COMMA; anon_sym_LBRACK; anon_sym_DOT].

Definition syms_627 : list ts_symbol :=
  [sym_kElse; anon_sym_SEMI; anon_sym_LBRACK; anon_sym_DOT].

Definition syms_628 : list ts_symbol :=
  [sym_kDelayed; sym_kAnd; sym_kAs; sym_kDiv; sym_kIn; sym_kIs; sym_kMod; sym_kNot; sym_kOr;
   sym_kShl; sym_kShr; sym_kXor; anon_sym_SEMI; sym_kEq; sym_kNeq; sym_kLte; sym_kGte; sym_kAdd;
   sym_kSub; sym_kMul; sym_kHat].

Definition syms_629 : list ts_symbol :=
  [sym_kDelayed; sym_kAnd; sym_kAs; sym_kDiv; sym_kIn; sym_kIs; sym_kMod; sym_kNot; sym_kOr;
   sym_kShl; sym_kShr; sym_kXor; anon_sym_SEMI; anon_sym_LBRACK; anon_sym_DOT; sym_kEq; sym_kNeq;
   sym_kLte; sym_kGte; sym_kAdd; sym_kSub; sym_kMul].

Definition syms_630 : list ts_symbol :=
  [sym_kDelayed; sym_kIn; sym_kIs; sym_kNot; anon_sym_SEMI; anon_sym_LBRACK; anon_sym_DOT;
   sym_kEq; sym_kNeq; sym_kLte; sym_kGte].

Definition syms_631 : list ts_symbol :=
  [sym_kDelayed; sym_kIn; sym_kIs; sym_kNot; sym_kOr; sym_kXor; anon_sym_SEMI; anon_sym_LBRACK;
   anon_sym_DOT; sym_kEq; sym_kNeq; sym_kLte; sym_kGte; sym_kAdd; sym_kSub].

Definition syms_632 : list ts_symbol :=
  [sym_kDelayed; anon_sym_SEMI; anon_sym_LBRACK; anon_sym_DOT].

Definition syms_633 : list ts_symbol :=
  [sym_kAnd; sym_kAs; sym_kDiv; sym_kDownto; sym_kIn; sym_kIs; sym_kMod; sym_kNot; sym_kOr;
   sym_kShl; sym_kShr; sym_kTo; sym_kXor; sym_kEq; sym_kNeq; sym_kLte; sym_kGte; sym_kAdd;
   sym_kSub; sym_kMul; sym_kHat].

Definition syms_634 : list ts_symbol :=
  [sym_kAnd; sym_kAs; sym_kDiv; sym_kDownto; sym_kIn; sym_kIs; sym_kMod; sym_kNot; sym_kOr;
   sym_kShl; sym_kShr; sym_kTo; sym_kXor; anon_sym_LBRACK; anon_sym_DOT; sym_kEq; sym_kNeq;
   sym_kLte; sym_kGte; sym_kAdd; sym_kSub; sym_kMul].

Definition syms_635 : list ts_symbol :=
  [sym_kDownto; sym_kIn; sym_kIs; sym_kNot; sym_kTo; anon_sym_LBRACK; anon_sym_DOT; sym_kEq;
   sym_kNeq; sym_kLte; sym_kGte].

Definition syms_636 : list ts_symbol :=
  [sym_kDownto; sym_kIn; sym_kIs; sym_kNot; sym_kOr; sym_kTo; sym_kXor; anon_sym_LBRACK;
   anon_sym_DOT; sym_kEq; sym_kNeq; sym_kLte; sym_kGte; sym_kAdd; sym_kSub].

Definition syms_637 : list ts_symbol :=
  [sym_kDownto; sym_kTo; anon_sym_LBRACK; anon_sym_DOT].

Definition syms_638 : list ts_symbol :=
  [sym_kDelayed; sym_kAnd; sym_kAs; sym_kDiv; sym_kIn; sym_kIs; sym_kMod; sym_kNot; sym_kOr;
   sym_kShl; sym_kShr; sym_kXor; anon_sym_SEMI; anon_sym_LBRACK; sym_kEq; sym_kNeq; sym_kLte;
   sym_kGte; sym_kAdd; sym_kSub; sym_kMul; sym_kHat].

Definition syms_639 : list ts_symbol :=
  [sym_kAnd; sym_kAs; sym_kDiv; sym_kIn; sym_kIs; sym_kMod; sym_kNot; sym_kOr; sym_kShl;
   sym_kShr; sym_kUntil; sym_kXor; anon_sym_SEMI; anon_sym_LBRACK; sym_kEq; sym_kNeq; sym_kLte;
   sym_kGte; sym_kAdd; sym_kSub; sym_kMul; sym_kHat].

Definition syms_640 : list ts_symbol :=
  [sym_kAbsolute; sym_kAnd; sym_kAs; sym_kDiv; sym_kIn; sym_kIs; sym_kMod; sym_kNot; sym_kOr;
   sym_kShl; sym_kShr; sym_kXor; anon_sym_SEMI; anon_sym_LBRACK; sym_kEq; sym_kNeq; sym_kLte;
   sym_kGte; sym_kAdd; sym_kSub; sym_kMul; sym_kHat].

Definition syms_641 : list ts_symbol :=
  [sym_kAnd; sym_kAs; sym_kDiv; sym_kDownto; sym_kIn; sym_kIs; sym_kMod; sym_kNot; sym_kOr;
   sym_kShl; sym_kShr; sym_kTo; sym_kXor; anon_sym_LBRACK; sym_kEq; sym_kNeq; sym_kLte; sym_kGte;
   sym_kAdd; sym_kSub; sym_kMul; sym_kHat].

Definition syms_642 : list ts_symbol :=
  [sym_kAnd; sym_kAs; sym_kDiv; sym_kIn; sym_kIs; sym_kMod; sym_kNot; sym_kOr; sym_kShl;
   sym_kShr; sym_kUntil; sym_kXor; anon_sym_SEMI; sym_kEq; sym_kNeq; sym_kLte; sym_kGte;
   sym_kAdd; sym_kSub; sym_kMul; sym_kHat].

Definition syms_643 : list ts_symbol :=
  [sym_kAnd; sym_kAs; sym_kDiv; sym_kIn; sym_kIs; sym_kMod; sym_kNot; sym_kOr; sym_kShl;
   sym_kShr; sym_kUntil; sym_kXor; anon_sym_SEMI; anon_sym_LBRACK; anon_sym_DOT; sym_kEq;
   sym_kNeq; sym_kLte; sym_kGte; sym_kAdd; sym_kSub; sym_kMul].

Definition syms_644 : list ts_symbol :=
  [sym_kIn; sym_kIs; sym_kNot; sym_kUntil; anon_sym_SEMI; anon_sym_LBRACK; anon_sym_DOT; sym_kEq;
   sym_kNeq; sym_kLte; sym_kGte].

Definition syms_645 : list ts_symbol :=
  [sym_kIn; sym_kIs; sym_kNot; sym_kOr; sym_kUntil; sym_kXor; anon_sym_SEMI; anon_sym_LBRACK;
   anon_sym_DOT; sym_kEq; sym_kNeq; sym_kLte; sym_kGte; sym_kAdd; sym_kSub].

Definition syms_646 : list ts_symbol :=
  [sym_kUntil; anon_sym_SEMI; anon_sym_LBRACK; anon_sym_DOT].

Definition syms_647 : list ts_symbol :=
  [sym_kElse; sym_kExcept; sym_kFinally; anon_sym_SEMI].

Definition syms_648 : list ts_symbol :=
  [sym_ppFragmentExpr; sym__literalStringMultiline; sym_identifier; sym_kSpecialize;
   sym_kOtherwise; sym_kElse; sym_kEnd; sym_kFunction; sym_kIf; sym_kInherited; sym_kNil;
   sym_kNot; sym_kProcedure; sym_kString; anon_sym_LBRACK; aux_sym__literalString_token1;
   anon_sym_POUND; aux_sym__literalInt_token2; aux_sym__literalInt_token3; sym_kAt; sym_kTrue;
   sym_kFalse].

Definition syms_649 : list ts_symbol :=
  [sym_kAnd; sym_kAs; sym_kDiv; sym_kIn; sym_kIs; sym_kMod; sym_kNot; sym_kOr; sym_kShl;
   sym_kShr; sym_kThen; sym_kXor; sym_kEq; sym_kNeq; sym_kLte; sym_kGte; sym_kAdd; sym_kSub;
   sym_kMul; sym_kHat].

Definition syms_650 : list ts_symbol :=
  [sym_kAnd; sym_kAs; sym_kDiv; sym_kDo; sym_kIn; sym_kIs; sym_kMod; sym_kNot; sym_kOr; sym_kShl;
   sym_kShr; sym_kXor; sym_kEq; sym_kNeq; sym_kLte; sym_kGte; sym_kAdd; sym_kSub; sym_kMul;
   sym_kHat].

Definition syms_651 : list ts_symbol :=
  [sym_ppFragmentExpr; sym__literalStringMultiline; sym_identifier; sym_kSpecialize;
   sym_kOtherwise; sym_kEnd; sym_kFunction; sym_kIf; sym_kInherited; sym_kNil; sym_kNot;
   sym_kProcedure; sym_kString; anon_sym_LBRACK; aux_sym__literalString_token1; anon_sym_POUND;
   aux_sym__literalInt_token2; aux_sym__literalInt_token3; sym_kAt; sym_kTrue; sym_kFalse].

Definition syms_652 : list ts_symbol :=
  [sym_kIn; sym_kIs; sym_kNot; sym_kThen; anon_sym_LBRACK; anon_sym_DOT; sym_kEq; sym_kNeq;
   sym_kLte; sym_kGte].

Definition syms_653 : list ts_symbol :=
  [sym_kAnd; sym_kAs; sym_kDiv; sym_kDo; sym_kIn; sym_kIs; sym_kMod; sym_kNot; sym_kOr; sym_kShl;
   sym_kShr; sym_kXor; anon_sym_LBRACK; anon_sym_DOT; sym_kEq; sym_kNeq; sym_kLte; sym_kGte;
   sym_kAdd; sym_kSub; sym_kMul; sym_kHat].

Definition syms_654 : list ts_symbol :=
  [sym_kOtherwise; sym_kElse; sym_kEnd; anon_sym_SEMI].

Definition syms_655 : list ts_symbol :=
  [sym_kAnd; sym_kAs; sym_kDiv; sym_kDo; sym_kIn; sym_kIs; sym_kMod; sym_kNot; sym_kOr; sym_kShl;
   sym_kShr; sym_kXor; anon_sym_LBRACK; anon_sym_DOT; sym_kEq; sym_kNeq; sym_kLte; sym_kGte;
   sym_kAdd; sym_kSub; sym_kMul].

Definition syms_656 : list ts_symbol :=
  [sym_kDo; sym_kIn; sym_kIs; sym_kNot; anon_sym_LBRACK; anon_sym_DOT; sym_kEq; sym_kNeq;
   sym_kLte; sym_kGte].

Definition syms_657 : list ts_symbol :=
  [sym_kDo; sym_kIn; sym_kIs; sym_kNot; sym_kOr; sym_kXor; anon_sym_LBRACK; anon_sym_DOT;
   sym_kEq; sym_kNeq; sym_kLte; sym_kGte; sym_kAdd; sym_kSub].

Definition syms_658 : list ts_symbol :=
  [sym_kAnd; sym_kAs; sym_kDiv; sym_kDo; sym_kIn; sym_kIs; sym_kMod; sym_kNot; sym_kOr; sym_kShl;
   sym_kShr; sym_kXor; anon_sym_LBRACK; sym_kEq; sym_kNeq; sym_kLte; sym_kGte; sym_kAdd;
   sym_kSub; sym_kMul; sym_kHat].

Definition syms_659 : list ts_symbol :=
  [sym_kThen; anon_sym_LBRACK; anon_sym_DOT].

Definition syms_660 : list ts_symbol :=
  [sym_kOf; anon_sym_SEMI; anon_sym_RBRACK; anon_sym_RPAREN].

Definition syms_661 : list ts_symbol :=
  [sym_kDo; anon_sym_LBRACK; anon_sym_DOT].

Definition syms_662 : list ts_symbol :=
  [anon_sym_COLON; anon_sym_COMMA; anon_sym_RBRACK; anon_sym_RPAREN].

Definition syms_663 : list ts_symbol :=
  [sym_kAnd; sym_kAs; sym_kDiv; sym_kIn; sym_kIs; sym_kMod; sym_kNot; sym_kOr; sym_kShl;
   sym_kShr; sym_kThen; sym_kXor; anon_sym_LBRACK; anon_sym_DOT; sym_kEq; sym_kNeq; sym_kLte;
   sym_kGte; sym_kAdd; sym_kSub; sym_kMul].

Definition syms_664 : list ts_symbol :=
  [sym_kIn; sym_kIs; sym_kNot; sym_kOr; sym_kThen; sym_kXor; anon_sym_LBRACK; anon_sym_DOT;
   sym_kEq; sym_kNeq; sym_kLte; sym_kGte; sym_kAdd; sym_kSub].

Definition syms_665 : list ts_symbol :=
  [sym_kAnd; sym_kAs; sym_kDiv; sym_kIn; sym_kIs; sym_kMod; sym_kNot; sym_kOr; sym_kShl;
   sym_kShr; sym_kThen; sym_kXor; anon_sym_LBRACK; sym_kEq; sym_kNeq; sym_kLte; sym_kGte;
   sym_kAdd; sym_kSub; sym_kMul; sym_kHat].

Definition syms_666 : list ts_symbol :=
  [sym_kIndex; sym_kName; anon_sym_SEMI; anon_sym_COMMA].

Definition syms_667 : list ts_symbol :=
  [anon_sym_SEMI; anon_sym_RBRACK; anon_sym_RPAREN].

Definition syms_668 : list ts_symbol :=
  [anon_sym_SEMI; anon_sym_COMMA].

Definition syms_669 : list ts_symbol :=
  [anon_sym_SEMI; anon_sym_RPAREN].

Definition syms_670 : list ts_symbol :=
  [sym_kGeneric; sym_kOperator; sym_kBegin; sym_kClass; sym_kConst; sym_kConstructor;
   sym_kDestructor; sym_kExports; sym_kFunction; sym_kLabel; sym_kProcedure; sym_kResourcestring;
   sym_kThreadvar; sym_kType; sym_kUses; sym_kVar; ts_builtin_sym_end].

Definition syms_671 : list ts_symbol :=
  [sym_kGeneric; sym_kOperator; sym_kAsm; sym_kBegin; sym_kClass; sym_kConst; sym_kConstructor;
   sym_kDestructor; sym_kExports; sym_kFunction; sym_kLabel; sym_kProcedure; sym_kResourcestring;
   sym_kThreadvar; sym_kType; sym_kUses; sym_kVar].

Definition syms_672 : list ts_symbol :=
  [sym_kAbsolute; sym_kOf; anon_sym_SEMI].

Definition syms_673 : list ts_symbol :=
  [sym_kAnd; sym_kAs; sym_kDiv; sym_kIn; sym_kIs; sym_kMod; sym_kNot; sym_kOr; sym_kShl;
   sym_kShr; sym_kXor; anon_sym_SEMI; anon_sym_RBRACK; anon_sym_RPAREN; sym_kEq; sym_kNeq;
   sym_kLte; sym_kGte; sym_kAdd; sym_kSub; sym_kMul].

Definition syms_674 : list ts_symbol :=
  [sym_kGeneric; sym_kOperator; sym_kBegin; sym_kClass; sym_kConst; sym_kConstructor;
   sym_kDestructor; sym_kEnd; sym_kExports; sym_kFunction; sym_kLabel; sym_kProcedure;
   sym_kResourcestring; sym_kThreadvar; sym_kType; sym_kUses; sym_kVar].

Definition syms_675 : list ts_symbol :=
  [sym_kElse; sym_kEnd; anon_sym_SEMI].

Definition syms_676 : list ts_symbol :=
  [sym_identifier; sym_kGeneric; sym_kOperator; sym_kPublished; sym_kPublic; sym_kProtected;
   sym_kPrivate; sym_kStrict; sym_kRequired; sym_kOptional; sym_kCase; sym_kClass; sym_kConst;
   sym_kConstructor; sym_kDestructor; sym_kEnd; sym_kFunction; sym_kProcedure; sym_kProperty;
   sym_kResourcestring; sym_kThreadvar; sym_kType; sym_kVar; anon_sym_SEMI; anon_sym_LBRACK;
   aux_sym_ppUsesBlock_token1].

Definition syms_677 : list ts_symbol :=
  [sym_kIn; sym_kIs; sym_kNot; anon_sym_SEMI; anon_sym_RBRACK; anon_sym_RPAREN; sym_kEq;
   sym_kNeq; sym_kLte; sym_kGte].

Definition syms_678 : list ts_symbol :=
  [sym_kExcept; sym_kFinally; anon_sym_SEMI].

Definition syms_679 : list ts_symbol :=
  [sym_kElse; sym_kUntil; anon_sym_SEMI].

Definition syms_680 : list ts_symbol :=
  [sym_kGeneric; sym_kOperator; sym_kClass; sym_kConst; sym_kConstructor; sym_kDestructor;
   sym_kEnd; sym_kExports; sym_kFinalization; sym_kFunction; sym_kImplementation;
   sym_kInitialization; sym_kInterface; sym_kLabel; sym_kProcedure; sym_kProperty;
   sym_kResourcestring; sym_kThreadvar; sym_kType; sym_kUses; sym_kVar; anon_sym_LBRACK;
   aux_sym_ppUsesBlock_token1].

Definition syms_681 : list ts_symbol :=
  [anon_sym_COLON; anon_sym_COMMA; anon_sym_RBRACK].

Definition syms_682 : list ts_symbol :=
  [sym_kIn; sym_kIs; sym_kNot; sym_kOr; sym_kXor; anon_sym_SEMI; anon_sym_RBRACK;
   anon_sym_RPAREN; sym_kEq; sym_kNeq; sym_kLte; sym_kGte; sym_kAdd; sym_kSub].

Definition syms_683 : list ts_symbol :=
  [sym_kAbsolute; anon_sym_SEMI].

Definition syms_684 : list ts_symbol :=
  [sym_kUntil; anon_sym_SEMI].

Definition syms_685 : list ts_symbol :=
  [sym_kElse; anon_sym_SEMI].

Definition syms_686 : list ts_symbol :=
  [sym_kDownto; sym_kTo].

Definition syms_687 : list ts_symbol :=
  [sym_kGeneric; sym_kOperator; sym_kPublished; sym_kPublic; sym_kProtected; sym_kPrivate;
   sym_kStrict; sym_kRequired; sym_kOptional; sym_kCase; sym_kClass; sym_kConst;
   sym_kConstructor; sym_kDestructor; sym_kEnd; sym_kFunction; sym_kProcedure; sym_kProperty;
   sym_kResourcestring; sym_kThreadvar; sym_kType; sym_kVar; anon_sym_LBRACK;
   aux_sym_ppUsesBlock_token1].

Definition syms_688 : list ts_symbol :=
  [sym_kEnd; anon_sym_SEMI].

Definition syms_689 : list ts_symbol :=
  [sym_ppFragmentExpr; sym__literalStringMultiline; sym_identifier; sym_kSpecialize;
   sym_kReference; sym_kArray; sym_kClass; sym_kFile; sym_kFunction; sym_kPacked; sym_kProcedure;
   sym_kRecord; sym_kSet; sym_kString; aux_sym__literalString_token1; anon_sym_POUND;
   aux_sym__literalInt_token2; aux_sym__literalInt_token3; sym_kHat].

Definition syms_690 : list ts_symbol :=
  [sym_identifier; sym_kGeneric; sym_kOperator; sym_kBegin; sym_kClass; sym_kConst;
   sym_kConstructor; sym_kDestructor; sym_kEnd; sym_kExports; sym_kFinalization; sym_kFunction;
   sym_kImplementation; sym_kInitialization; sym_kInterface; sym_kLabel; sym_kProcedure;
   sym_kResourcestring; sym_kThreadvar; sym_kType; sym_kUses; sym_kVar; anon_sym_LBRACK;
   aux_sym_ppUsesBlock_token1].

Definition syms_691 : list ts_symbol :=
  [sym_identifier; sym_kGeneric; sym_kOperator; sym_kClass; sym_kConst; sym_kConstructor;
   sym_kDestructor; sym_kEnd; sym_kExports; sym_kFinalization; sym_kFunction;
   sym_kImplementation; sym_kInitialization; sym_kInterface; sym_kLabel; sym_kProcedure;
   sym_kProperty; sym_kResourcestring; sym_kThreadvar; sym_kType; sym_kUses; sym_kVar;
   anon_sym_LBRACK; aux_sym_ppUsesBlock_token1].

Definition syms_692 : list ts_symbol :=
  [sym_kGeneric; sym_kOperator; sym_kBegin; sym_kClass; sym_kConst; sym_kConstructor;
   sym_kDestructor; sym_kEnd; sym_kExports; sym_kFinalization; sym_kFunction;
   sym_kImplementation; sym_kInitialization; sym_kInterface; sym_kLabel; sym_kProcedure;
   sym_kResourcestring; sym_kThreadvar; sym_kType; sym_kUses; sym_kVar; anon_sym_LBRACK;
   aux_sym_ppUsesBlock_token1].

Definition syms_693 : list ts_symbol :=
  [sym_kGeneric; sym_kOperator; sym_kDeprecated; sym_kAsm; sym_kBegin; sym_kClass; sym_kConst;
   sym_kConstructor; sym_kDestructor; sym_kExports; sym_kFunction; sym_kLabel; sym_kProcedure;
   sym_kResourcestring; sym_kThreadvar; sym_kType; sym_kUses; sym_kVar; anon_sym_LBRACK;
   aux_sym_ppUsesBlock_token1; anon_sym_DOT; sym_kLt].

Definition syms_694 : list ts_symbol :=
  [sym_identifier; sym_kAnd; sym_kDiv; sym_kIn; sym_kMod; sym_kNot; sym_kOr; sym_kShl; sym_kShr;
   sym_kXor; anon_sym_DOT; sym_kEq; sym_kNeq; sym_kLte; sym_kGte; sym_kAdd; sym_kSub; sym_kMul;
   sym_kAssign].

Definition syms_695 : list ts_symbol :=
  [sym_kRead; sym_kWrite; sym_kImplements; sym_kDefault; sym_kNodefault; sym_kStored; sym_kIndex;
   sym_kDispId; sym_kDiv; sym_kMod; sym_kShl; sym_kShr; anon_sym_SEMI; sym_kAdd; sym_kSub;
   sym_kMul].

Definition syms_696 : list ts_symbol :=
  [sym_kRead; sym_kWrite; sym_kImplements; sym_kDefault; sym_kNodefault; sym_kStored; sym_kIndex;
   sym_kDispId; sym_kDeprecated; sym_kDiv; sym_kMod; sym_kShl; sym_kShr; anon_sym_SEMI;
   anon_sym_DOT_DOT; sym_kLt; sym_kAdd; sym_kSub; sym_kMul].

Definition syms_697 : list ts_symbol :=
  [sym_kDiv; sym_kMod; sym_kShl; sym_kShr; anon_sym_DOT_DOT; sym_kAdd; sym_kSub; sym_kMul].

Definition syms_698 : list ts_symbol :=
  [sym_kDiv; sym_kMod; sym_kShl; sym_kShr; anon_sym_DOT_DOT; sym_kLt; sym_kAdd; sym_kSub;
   sym_kMul].

Definition syms_699 : list ts_symbol :=
  [sym_kGeneric; sym_kOperator; sym_kBegin; sym_kClass; sym_kConst; sym_kConstructor;
   sym_kDestructor; sym_kEnd; sym_kExports; sym_kFunction; sym_kLabel; sym_kProcedure;
   sym_kResourcestring; sym_kThreadvar; sym_kType; sym_kUses; sym_kVar; anon_sym_LBRACK;
   aux_sym_ppUsesBlock_token1].

Definition syms_700 : list ts_symbol :=
  [sym_identifier; sym_kGeneric; sym_kOperator; sym_kBegin; sym_kClass; sym_kConst;
   sym_kConstructor; sym_kDestructor; sym_kEnd; sym_kExports; sym_kFunction; sym_kLabel;
   sym_kProcedure; sym_kResourcestring; sym_kThreadvar; sym_kType; sym_kUses; sym_kVar;
   anon_sym_LBRACK; aux_sym_ppUsesBlock_token1].

Definition syms_701 : list ts_symbol :=
  [sym_kAbsolute; sym_kEq].

Definition syms_702 : list ts_symbol :=
  [anon_sym_DOT; sym_kAdd; sym_kSub; sym_kMul].

Definition syms_703 : list ts_symbol :=
  [sym_kDiv; sym_kMod; sym_kShl; sym_kShr; anon_sym_DOT_DOT; sym_kLt; sym_kAssign;
   sym_kAssignAdd; sym_kAssignSub; sym_kAssignMul; sym_kAssignDiv].

Definition syms_704 : list ts_symbol :=
  [sym_kGeneric; sym_kOperator; sym_kAsm; sym_kBegin; sym_kClass; sym_kConst; sym_kConstructor;
   sym_kDestructor; sym_kExports; sym_kFunction; sym_kLabel; sym_kProcedure; sym_kResourcestring;
   sym_kThreadvar; sym_kType; sym_kUses; sym_kVar; anon_sym_COLON; anon_sym_LBRACK;
   aux_sym_ppUsesBlock_token1].

Definition syms_705 : list ts_symbol :=
  [sym_kGeneric; sym_kOperator; sym_kBegin; sym_kClass; sym_kConst; sym_kConstructor;
   sym_kDestructor; sym_kEnd; sym_kExports; sym_kFunction; sym_kLabel; sym_kProcedure;
   sym_kResourcestring; sym_kThreadvar; sym_kType; sym_kUses; sym_kVar; anon_sym_LBRACK;
   aux_sym_ppUsesBlock_token1; anon_sym_DOT].

Definition syms_706 : list ts_symbol :=
  [sym_kAbsolute; sym_kDeprecated; sym_kDiv; sym_kMod; sym_kShl; sym_kShr; anon_sym_SEMI;
   anon_sym_DOT_DOT; sym_kLt; sym_kEq; sym_kAssign; sym_kAssignAdd; sym_kAssignSub;
   sym_kAssignMul; sym_kAssignDiv].

Definition syms_707 : list ts_symbol :=
  [sym_kGeneric; sym_kOperator; sym_kAsm; sym_kBegin; sym_kClass; sym_kConst; sym_kConstructor;
   sym_kDestructor; sym_kExports; sym_kFunction; sym_kLabel; sym_kProcedure; sym_kResourcestring;
   sym_kThreadvar; sym_kType; sym_kUses; sym_kVar; anon_sym_SEMI; anon_sym_LBRACK;
   aux_sym_ppUsesBlock_token1].

Definition syms_708 : list ts_symbol :=
  [sym_identifier; sym_kGeneric; sym_kOperator; sym_kBegin; sym_kClass; sym_kConst;
   sym_kConstructor; sym_kDestructor; sym_kExports; sym_kFunction; sym_kLabel; sym_kProcedure;
   sym_kResourcestring; sym_kThreadvar; sym_kType; sym_kUses; sym_kVar; ts_builtin_sym_end;
   anon_sym_LBRACK; aux_sym_ppUsesBlock_token1].

Definition syms_709 : list ts_symbol :=
  [sym_kGeneric; sym_kOperator; sym_kBegin; sym_kClass; sym_kConst; sym_kConstructor;
   sym_kDestructor; sym_kExports; sym_kFunction; sym_kLabel; sym_kProcedure; sym_kResourcestring;
   sym_kThreadvar; sym_kType; sym_kUses; sym_kVar; ts_builtin_sym_end; anon_sym_LBRACK;
   aux_sym_ppUsesBlock_token1; anon_sym_DOT].

Definition syms_710 : list ts_symbol :=
  [sym_kGeneric; sym_kOperator; sym_kBegin; sym_kClass; sym_kConst; sym_kConstructor;
   sym_kDestructor; sym_kExports; sym_kFunction; sym_kLabel; sym_kProcedure; sym_kResourcestring;
   sym_kThreadvar; sym_kType; sym_kUses; sym_kVar; anon_sym_LBRACK; aux_sym_ppUsesBlock_token1].

Definition syms_711 : list ts_symbol :=
  [sym_identifier; sym_kGeneric; sym_kOperator; sym_kAsm; sym_kBegin; sym_kClass; sym_kConst;
   sym_kConstructor; sym_kDestructor; sym_kExports; sym_kFunction; sym_kLabel; sym_kProcedure;
   sym_kResourcestring; sym_kThreadvar; sym_kType; sym_kUses; sym_kVar; anon_sym_LBRACK;
   aux_sym_ppUsesBlock_token1].

Definition syms_712 : list ts_symbol :=
  [sym_kAdd; sym_kSub; sym_kMul].

Definition syms_713 : list ts_symbol :=
  [sym_kDiv; sym_kMod; sym_kShl; sym_kShr; anon_sym_DOT_DOT].

Definition syms_714 : list ts_symbol :=
  [sym_kGeneric; sym_kOperator; sym_kBegin; sym_kClass; sym_kConst; sym_kConstructor;
   sym_kDestructor; sym_kExports; sym_kFunction; sym_kLabel; sym_kProcedure; sym_kResourcestring;
   sym_kThreadvar; sym_kType; sym_kUses; sym_kVar; ts_builtin_sym_end; anon_sym_LBRACK;
   aux_sym_ppUsesBlock_token1].

Definition syms_715 : list ts_symbol :=
  [sym_kRead; sym_kWrite; sym_kImplements; sym_kDefault; sym_kNodefault; sym_kStored; sym_kIndex;
   sym_kDispId; sym_kDiv; sym_kMod; sym_kShl; sym_kShr; anon_sym_SEMI; anon_sym_DOT; sym_kLt;
   sym_kAdd; sym_kSub; sym_kMul].

Definition syms_716 : list ts_symbol :=
  [sym__literalStringMultiline; sym_kRead; sym_kWrite; sym_kImplements; sym_kDefault;
   sym_kNodefault; sym_kStored; sym_kIndex; sym_kDispId; sym_kDiv; sym_kMod; sym_kShl; sym_kShr;
   anon_sym_SEMI; aux_sym__literalString_token1; anon_sym_POUND; sym_kAdd; sym_kSub; sym_kMul].

Definition syms_717 : list ts_symbol :=
  [sym_kDiv; sym_kMod; sym_kShl; sym_kShr; anon_sym_SEMI; anon_sym_RBRACK; anon_sym_RPAREN;
   anon_sym_DOT_DOT; sym_kEq; sym_kAdd; sym_kSub; sym_kMul].

Definition syms_718 : list ts_symbol :=
  [sym_kDeprecated; sym_kDiv; sym_kMod; sym_kShl; sym_kShr; anon_sym_SEMI; anon_sym_RBRACK;
   anon_sym_RPAREN; anon_sym_DOT_DOT; sym_kLt; sym_kEq; sym_kAdd; sym_kSub; sym_kMul].

Definition syms_719 : list ts_symbol :=
  [sym_kDeprecated; sym_kElse; sym_kEnd; sym_kFinalization; sym_kImplementation;
   sym_kInitialization; sym_kInterface; anon_sym_SEMI; anon_sym_DOT; sym_kLt; sym_kAssign;
   sym_kAssignAdd; sym_kAssignSub; sym_kAssignMul; sym_kAssignDiv].

Definition syms_720 : list ts_symbol :=
  [sym_kDiv; sym_kMod; sym_kShl; sym_kShr; sym_kMul].

Definition syms_721 : list ts_symbol :=
  [sym_kRead; sym_kWrite; sym_kImplements; sym_kDefault; sym_kNodefault; sym_kStored; sym_kIndex;
   sym_kDispId; anon_sym_SEMI; sym_kAdd; sym_kSub].

Definition syms_722 : list ts_symbol :=
  [sym_kAbsolute; sym_kDiv; sym_kMod; sym_kShl; sym_kShr; anon_sym_SEMI; sym_kEq; sym_kAdd;
   sym_kSub; sym_kMul].

Definition syms_723 : list ts_symbol :=
  [sym_kDiv; sym_kMod; sym_kShl; sym_kShr; aux_sym_ppUsesBlock_token2;
   aux_sym_ppUsesBlock_token3; sym_kAdd; sym_kSub; sym_kMul].

Definition syms_724 : list ts_symbol :=
  [sym_kDeprecated; sym_kEnd; sym_kFinalization; sym_kImplementation; sym_kInitialization;
   sym_kInterface; anon_sym_SEMI; anon_sym_DOT; sym_kLt; sym_kAssign; sym_kAssignAdd;
   sym_kAssignSub; sym_kAssignMul; sym_kAssignDiv].

Definition syms_725 : list ts_symbol :=
  [sym_kAbsolute; sym_kDeprecated; sym_kDiv; sym_kMod; sym_kShl; sym_kShr; anon_sym_SEMI;
   anon_sym_DOT_DOT; sym_kLt; sym_kEq; sym_kAdd; sym_kSub; sym_kMul].

Definition syms_726 : list ts_symbol :=
  [sym_typeref; sym__genericKeywordConstraintTyperef].

Definition syms_727 : list ts_symbol :=
  [sym_kClass; sym_kConstructor; sym_kInterface; sym_kRecord].

Definition syms_728 : list ts_symbol :=
  [sym_kDeprecated; anon_sym_SEMI; anon_sym_COMMA; anon_sym_RBRACK; anon_sym_RPAREN;
   anon_sym_DOT; sym_kLt; sym_kEq; sym_kGt; sym_kAssign; sym_kAssignAdd; sym_kAssignSub;
   sym_kAssignMul; sym_kAssignDiv].

Definition syms_729 : list ts_symbol :=
  [sym__literalStringMultiline; sym_kDiv; sym_kMod; sym_kShl; sym_kShr; anon_sym_SEMI;
   anon_sym_RBRACK; anon_sym_RPAREN; anon_sym_DOT_DOT; aux_sym__literalString_token1;
   anon_sym_POUND; sym_kEq; sym_kAdd; sym_kSub; sym_kMul].

Definition syms_730 : list ts_symbol :=
  [sym_kCase; sym_kEnd].

Definition syms_731 : list ts_symbol :=
  [sym_kDeprecated; anon_sym_DOT; sym_kLt; sym_kAssign; sym_kAssignAdd; sym_kAssignSub;
   sym_kAssignMul; sym_kAssignDiv].

Definition syms_732 : list ts_symbol :=
  [sym_kDiv; sym_kMod; sym_kShl; sym_kShr; anon_sym_SEMI; anon_sym_RBRACK; anon_sym_RPAREN;
   anon_sym_DOT; sym_kLt; sym_kEq; sym_kAdd; sym_kSub; sym_kMul].

Definition syms_733 : list ts_symbol :=
  [sym_kDeprecated; sym_kDiv; sym_kMod; sym_kShl; sym_kShr; anon_sym_DOT_DOT;
   aux_sym_ppUsesBlock_token2; aux_sym_ppUsesBlock_token3; sym_kLt; sym_kAdd; sym_kSub; sym_kMul].

Definition syms_734 : list ts_symbol :=
  [sym_kDiv; sym_kMod; sym_kShl; sym_kShr; anon_sym_SEMI; anon_sym_RBRACK; anon_sym_RPAREN;
   sym_kEq; sym_kAdd; sym_kSub; sym_kMul].

Definition syms_735 : list ts_symbol :=
  [sym_kRead; sym_kWrite; sym_kImplements; sym_kDefault; sym_kNodefault; sym_kStored; sym_kIndex;
   sym_kDispId; sym_kDeprecated; sym_kOf; anon_sym_SEMI; anon_sym_DOT; sym_kLt].

Definition syms_736 : list ts_symbol :=
  [sym_kRead; sym_kWrite; sym_kImplements; sym_kDefault; sym_kNodefault; sym_kStored; sym_kIndex;
   sym_kDispId; sym_kDeprecated; anon_sym_SEMI; anon_sym_DOT; sym_kLt].

Definition syms_737 : list ts_symbol :=
  [sym_kOtherwise; sym_kDeprecated; sym_kElse; sym_kEnd; anon_sym_SEMI; anon_sym_DOT; sym_kLt;
   sym_kAssign; sym_kAssignAdd; sym_kAssignSub; sym_kAssignMul; sym_kAssignDiv].

Definition syms_738 : list ts_symbol :=
  [sym_kAbsolute; sym_kDiv; sym_kMod; sym_kShl; sym_kShr; anon_sym_SEMI; anon_sym_DOT; sym_kLt;
   sym_kEq; sym_kAdd; sym_kSub; sym_kMul].

Definition syms_739 : list ts_symbol :=
  [sym__literalStringMultiline; sym_kAbsolute; sym_kDiv; sym_kMod; sym_kShl; sym_kShr;
   anon_sym_SEMI; aux_sym__literalString_token1; anon_sym_POUND; sym_kEq; sym_kAdd; sym_kSub;
   sym_kMul].

Definition syms_740 : list ts_symbol :=
  [sym_kDeprecated; sym_kElse; sym_kExcept; sym_kFinally; anon_sym_SEMI; anon_sym_DOT; sym_kLt;
   sym_kAssign; sym_kAssignAdd; sym_kAssignSub; sym_kAssignMul; sym_kAssignDiv].

Definition syms_741 : list ts_symbol :=
  [sym__usesModule; sym_ppUsesBlock; aux_sym_ppUsesBlock_repeat1].

Definition syms_742 : list ts_symbol :=
  [sym_kDiv; sym_kMod; sym_kShl; sym_kShr; aux_sym_ppUsesBlock_token2;
   aux_sym_ppUsesBlock_token3; anon_sym_DOT; sym_kLt; sym_kAdd; sym_kSub; sym_kMul].

Definition syms_743 : list ts_symbol :=
  [sym_kDeprecated; sym_kExcept; sym_kFinally; anon_sym_SEMI; anon_sym_DOT; sym_kLt; sym_kAssign;
   sym_kAssignAdd; sym_kAssignSub; sym_kAssignMul; sym_kAssignDiv].

Definition syms_744 : list ts_symbol :=
  [sym_kDeprecated; sym_kElse; sym_kUntil; anon_sym_SEMI; anon_sym_DOT; sym_kLt; sym_kAssign;
   sym_kAssignAdd; sym_kAssignSub; sym_kAssignMul; sym_kAssignDiv].

Definition syms_745 : list ts_symbol :=
  [sym_kAbsolute; sym_kDeprecated; anon_sym_SEMI; anon_sym_DOT; sym_kLt; sym_kEq; sym_kAssign;
   sym_kAssignAdd; sym_kAssignSub; sym_kAssignMul; sym_kAssignDiv].

Definition syms_746 : list ts_symbol :=
  [sym_kDeprecated; sym_kElse; sym_kEnd; anon_sym_SEMI; anon_sym_DOT; sym_kLt; sym_kAssign;
   sym_kAssignAdd; sym_kAssignSub; sym_kAssignMul; sym_kAssignDiv].

Definition syms_747 : list ts_symbol :=
  [sym__literalStringMultiline; sym_kDiv; sym_kMod; sym_kShl; sym_kShr;
   aux_sym__literalString_token1; anon_sym_POUND; aux_sym_ppUsesBlock_token2;
   aux_sym_ppUsesBlock_token3; sym_kAdd; sym_kSub; sym_kMul].

Definition syms_748 : list ts_symbol :=
  [sym_identifier; anon_sym_SEMI; anon_sym_COMMA; aux_sym_ppUsesBlock_token1;
   aux_sym_ppUsesBlock_token2; aux_sym_ppUsesBlock_token3].

Definition syms_749 : list ts_symbol :=
  [sym_kDeprecated; sym_kElse; anon_sym_SEMI; anon_sym_DOT; sym_kLt; sym_kAssign; sym_kAssignAdd;
   sym_kAssignSub; sym_kAssignMul; sym_kAssignDiv].

Definition syms_750 : list ts_symbol :=
  [anon_sym_SEMI; anon_sym_RBRACK; anon_sym_RPAREN; sym_kEq; sym_kAdd; sym_kSub].

Definition syms_751 : list ts_symbol :=
  [sym_kRead; sym_kWrite; sym_kImplements; sym_kDefault; sym_kNodefault; sym_kStored; sym_kIndex;
   sym_kDispId; sym_kOf; anon_sym_SEMI; anon_sym_COLON].

Definition syms_752 : list ts_symbol :=
  [sym_identifier; sym_kGeneric; sym_kOperator; sym_kClass; sym_kConstructor; sym_kDestructor;
   sym_kFunction; sym_kProcedure; sym_kProperty].

Definition syms_753 : list ts_symbol :=
  [sym_kDeprecated; sym_kEnd; anon_sym_SEMI; anon_sym_DOT; sym_kLt; sym_kAssign; sym_kAssignAdd;
   sym_kAssignSub; sym_kAssignMul; sym_kAssignDiv].

Definition syms_754 : list ts_symbol :=
  [sym_kDeprecated; sym_kUntil; anon_sym_SEMI; anon_sym_DOT; sym_kLt; sym_kAssign;
   sym_kAssignAdd; sym_kAssignSub; sym_kAssignMul; sym_kAssignDiv].

Definition syms_755 : list ts_symbol :=
  [sym_kDeprecated; sym_kIn; anon_sym_DOT; sym_kLt; sym_kAssign; sym_kAssignAdd; sym_kAssignSub;
   sym_kAssignMul; sym_kAssignDiv].

Definition syms_756 : list ts_symbol :=
  [sym__usesClauseEntry; sym__usesModule; sym_ppUsesBlock; aux_sym_declUses_repeat1].

Definition syms_757 : list ts_symbol :=
  [sym_interface; sym_initialization; sym_finalization; aux_sym_unit_repeat1].

Definition syms_758 : list ts_symbol :=
  [sym_identifier; sym_kGeneric; sym_kOperator; sym_kClass; sym_kConstructor; sym_kDestructor;
   sym_kFunction; sym_kProcedure; sym_kProperty; anon_sym_LBRACK].

Definition syms_759 : list ts_symbol :=
  [sym_kRead; sym_kWrite; sym_kImplements; sym_kDefault; sym_kNodefault; sym_kStored; sym_kIndex;
   sym_kDispId; anon_sym_SEMI; anon_sym_COLON].

Definition syms_760 : list ts_symbol :=
  [sym_identifier; anon_sym_SEMI; anon_sym_COMMA; aux_sym_ppUsesBlock_token1].

Definition syms_761 : list ts_symbol :=
  [sym_kGeneric; sym_kOperator; sym_kClass; sym_kConstructor; sym_kDestructor; sym_kFunction;
   sym_kProcedure; sym_kProperty].

Definition syms_762 : list ts_symbol :=
  [sym_kAbsolute; anon_sym_SEMI; sym_kEq; sym_kAdd; sym_kSub].

Definition syms_763 : list ts_symbol :=
  [sym_kConstref; sym_kOut; sym_kVar].

Definition syms_764 : list ts_symbol :=
  [sym_kGeneric; sym_kOperator; sym_kClass; sym_kConstructor; sym_kDestructor; sym_kFunction;
   sym_kProcedure; sym_kProperty; anon_sym_LBRACK].

Definition syms_765 : list ts_symbol :=
  [sym_identifier; sym_kIn; anon_sym_SEMI; anon_sym_COMMA; aux_sym_ppUsesBlock_token1;
   aux_sym_ppUsesBlock_token2; aux_sym_ppUsesBlock_token3].

Definition syms_766 : list ts_symbol :=
  [aux_sym_ppUsesBlock_token2; aux_sym_ppUsesBlock_token3; sym_kAdd; sym_kSub].

Definition syms_767 : list ts_symbol :=
  [sym__literalStringMultiline; sym_identifier; anon_sym_SEMI; anon_sym_COMMA;
   aux_sym__literalString_token1; anon_sym_POUND; aux_sym_ppUsesBlock_token1;
   aux_sym_ppUsesBlock_token2; aux_sym_ppUsesBlock_token3].

Definition syms_768 : list ts_symbol :=
  [sym_kDeprecated; sym_kOf; anon_sym_SEMI; anon_sym_RBRACK; anon_sym_RPAREN; anon_sym_DOT;
   sym_kLt; sym_kEq].

Definition syms_769 : list ts_symbol :=
  [sym_kGeneric; sym_kOperator; sym_kClass; sym_kConstructor; sym_kDestructor; sym_kFunction;
   sym_kProcedure].

Definition syms_770 : list ts_symbol :=
  [sym_kDispInterface; sym_kInterface].

Definition syms_771 : list ts_symbol :=
  [sym_kObjcclass; sym_kObjccategory; sym_kObjcprotocol; sym_kClass; sym_kObject].

Definition syms_772 : list ts_symbol :=
  [sym_kGeneric; sym_kOperator; sym_kClass; sym_kConstructor; sym_kDestructor; sym_kFunction;
   sym_kProcedure; anon_sym_LBRACK].

Definition syms_773 : list ts_symbol :=
  [sym_identifier; anon_sym_SEMI; anon_sym_COLON; anon_sym_DOT; sym_kEq].

Definition syms_774 : list ts_symbol :=
  [sym_identifier; anon_sym_SEMI; anon_sym_COLON; sym_kEq].

Definition syms_775 : list ts_symbol :=
  [sym_kAbsolute; sym_kDeprecated; sym_kOf; anon_sym_SEMI; anon_sym_DOT; sym_kLt; sym_kEq].

Definition syms_776 : list ts_symbol :=
  [anon_sym_DOT_DOT; sym_kAdd; sym_kSub].

Definition syms_777 : list ts_symbol :=
  [sym_identifier; aux_sym_asmBody_token1; aux_sym_asmBody_token2; aux_sym_asmBody_token3].

Definition syms_778 : list ts_symbol :=
  [sym_kDeprecated; sym_kOf; aux_sym_ppUsesBlock_token2; aux_sym_ppUsesBlock_token3;
   anon_sym_DOT; sym_kLt].

Definition syms_779 : list ts_symbol :=
  [sym_identifier; anon_sym_SEMI; anon_sym_COLON; anon_sym_DOT; sym_kLt; sym_kEq].

Definition syms_780 : list ts_symbol :=
  [sym__literalStringMultiline; sym_identifier; anon_sym_SEMI; anon_sym_COMMA;
   aux_sym__literalString_token1; anon_sym_POUND; aux_sym_ppUsesBlock_token1].

Definition syms_781 : list ts_symbol :=
  [sym_identifier; sym_kEnd; sym_kFinalization; sym_kImplementation; sym_kInitialization;
   sym_kInterface; sym_labelNumber].

Definition syms_782 : list ts_symbol :=
  [sym_identifier; sym_kIn; anon_sym_SEMI; anon_sym_COMMA; aux_sym_ppUsesBlock_token1].

Definition syms_783 : list ts_symbol :=
  [sym_kIndex; sym_kName; anon_sym_SEMI; anon_sym_COMMA; anon_sym_DOT].

Definition syms_784 : list ts_symbol :=
  [sym_kPublished; sym_kPublic; sym_kProtected; sym_kPrivate; sym_kStrict; sym_kRequired;
   sym_kOptional].

Definition syms_785 : list ts_symbol :=
  [anon_sym_SEMI; anon_sym_COLON; anon_sym_DOT; sym_kEq].

Definition syms_786 : list ts_symbol :=
  [anon_sym_DOT; sym_kLt].

Definition syms_787 : list ts_symbol :=
  [sym_kOf; anon_sym_SEMI; anon_sym_COLON; anon_sym_RBRACK; anon_sym_RPAREN; sym_kEq].

Definition syms_788 : list ts_symbol :=
  [anon_sym_SEMI; anon_sym_COLON; anon_sym_DOT; sym_kLt; sym_kEq].

Definition syms_789 : list ts_symbol :=
  [anon_sym_SEMI; sym_kGt].

Definition syms_790 : list ts_symbol :=
  [sym_kIndex; sym_kName; anon_sym_SEMI; anon_sym_COMMA; anon_sym_DOT; sym_kLt].

Definition syms_791 : list ts_symbol :=
  [sym_kDeprecated; aux_sym_ppUsesBlock_token2; aux_sym_ppUsesBlock_token3; anon_sym_DOT; sym_kLt].

Definition syms_792 : list ts_symbol :=
  [anon_sym_COMMA; anon_sym_DOT; sym_kLt; sym_kGt].

Definition syms_793 : list ts_symbol :=
  [sym_kDeprecated; sym_kDo; anon_sym_DOT; sym_kLt].

Definition syms_794 : list ts_symbol :=
  [sym_kDeprecated; sym_kOf; anon_sym_DOT; sym_kLt].

Definition syms_795 : list ts_symbol :=
  [sym_kAbsolute; sym_kOf; anon_sym_SEMI; anon_sym_COLON; sym_kEq].

Definition syms_796 : list ts_symbol :=
  [anon_sym_COMMA; anon_sym_RBRACK; anon_sym_RPAREN].

Definition syms_797 : list ts_symbol :=
  [anon_sym_SEMI; anon_sym_COMMA; anon_sym_RBRACK; anon_sym_RPAREN; sym_kGt].

Definition syms_798 : list ts_symbol :=
  [sym_ppFragmentExpr; sym_identifier; sym_kSpecialize; sym_kString; sym_kHat].

Definition syms_799 : list ts_symbol :=
  [sym_identifier; sym_kConstref; sym_kOut; sym_kConst; sym_kVar].

Definition syms_800 : list ts_symbol :=
  [sym_ppFragmentExpr; sym_identifier; sym_kString; sym_kHat].

Definition syms_801 : list ts_symbol :=
  [aux_sym__literalInt_token1; aux_sym__literalInt_token2; aux_sym__literalInt_token3].

Definition syms_802 : list ts_symbol :=
  [sym_kOf; anon_sym_COLON; aux_sym_ppUsesBlock_token2; aux_sym_ppUsesBlock_token3].

Definition syms_803 : list ts_symbol :=
  [sym_identifier; sym_kGeneric].

Definition syms_804 : list ts_symbol :=
  [sym_identifier; sym_kExcept; sym_kFinally; sym_labelNumber].

Definition syms_805 : list ts_symbol :=
  [sym_kOn; sym_kElse; sym_kEnd].

Definition syms_806 : list ts_symbol :=
  [sym_identifier; sym_kGeneric; anon_sym_LBRACK].

Definition syms_807 : list ts_symbol :=
  [anon_sym_SEMI; anon_sym_COMMA; anon_sym_RBRACK].

Definition syms_808 : list ts_symbol :=
  [anon_sym_SEMI; anon_sym_COLON; sym_kEq].

Definition syms_809 : list ts_symbol :=
  [sym_kOtherwise; sym_kEnd].

Definition syms_810 : list ts_symbol :=
  [sym_identifier; sym_kEnd; sym_labelNumber].

Definition syms_811 : list ts_symbol :=
  [anon_sym_SEMI; sym_kEq; sym_kGt].

Definition syms_812 : list ts_symbol :=
  [sym_identifier; sym_kUntil; sym_labelNumber].

Definition syms_813 : list ts_symbol :=
  [sym_exceptionHandler; aux_sym__exceptionHandlersTr_repeat1].

Definition syms_814 : list ts_symbol :=
  [sym_kOn; sym_kEnd].

Definition syms_815 : list ts_symbol :=
  [sym_kOn; sym_kElse].

Definition syms_816 : list ts_symbol :=
  [sym_identifier; anon_sym_LBRACK].
