(* ===== verification/SmallTable1.v ===== *)
(** * The compressed parse table of [parser.c], states 2759 to 3458

    The record of each small state in [ts_small_parse_table], as the source
    writes it: its index in the array, the number of its groups, and the groups
    in their order, each with its value, the number of its symbols and the
    symbols. *)

From S2P Require Import Prelude.
From S2P Require Import Symbols.
From S2P Require Import ParseTypes.
From S2P Require Import SmallSymbols.

(** States 2759 to 2858. *)
Definition small_runs_2759 : list small_run :=
  [
   (0, 13, [AGroup 14935 1 [sym_identifier]; AGroup 14939 1 [sym_kGeneric];
     AGroup 14941 1 [sym_kOperator]; AGroup 14943 1 [sym_kClass]; AGroup 14947 1 [sym_kProperty];
     SGroup 1355 1 [sym__declProc]; SGroup 1356 1 [sym__declOperator];
     SGroup 5431 1 [aux_sym_declVar_repeat1]; SGroup 13611 1 [aux_sym_genericArg_repeat1];
     AGroup 3 3 syms_1; SGroup 12287 3 syms_2; AGroup 14945 4 syms_3; AGroup 14937 44 syms_4]);
   (90, 21, [AGroup 5 1 [sym_ppDirective]; AGroup 3196 1 [anon_sym_LBRACK];
     AGroup 3198 1 [anon_sym_LPAREN]; AGroup 3202 1 [anon_sym_POUND];
     AGroup 3218 1 [sym_kSpecialize]; AGroup 3240 1 [sym_kInherited];
     AGroup 3246 1 [sym_kString]; AGroup 14949 1 [sym_kIf]; AGroup 3 2 syms_5;
     AGroup 3200 2 syms_6; AGroup 3204 2 syms_7; AGroup 3206 2 syms_8; AGroup 3208 2 syms_9;
     AGroup 3210 2 syms_10; AGroup 3234 2 syms_11; SGroup 6992 2 syms_12; SGroup 5959 3 syms_13;
     SGroup 7109 4 syms_14; AGroup 3212 5 syms_15; AGroup 14765 12 syms_16;
     SGroup 6884 14 syms_17]);
   (195, 21, [AGroup 5 1 [sym_ppDirective]; AGroup 3196 1 [anon_sym_LBRACK];
     AGroup 3198 1 [anon_sym_LPAREN]; AGroup 3202 1 [anon_sym_POUND];
     AGroup 3218 1 [sym_kSpecialize]; AGroup 3240 1 [sym_kInherited];
     AGroup 3246 1 [sym_kString]; AGroup 14949 1 [sym_kIf]; AGroup 3 2 syms_5;
     AGroup 3200 2 syms_6; AGroup 3204 2 syms_7; AGroup 3206 2 syms_8; AGroup 3208 2 syms_9;
     AGroup 3210 2 syms_10; AGroup 3234 2 syms_11; SGroup 6992 2 syms_12; SGroup 5959 3 syms_13;
     SGroup 7108 4 syms_14; AGroup 3212 5 syms_15; AGroup 14747 12 syms_16;
     SGroup 6884 14 syms_17]);
   (300, 21, [AGroup 5 1 [sym_ppDirective]; AGroup 609 1 [anon_sym_LBRACK];
     AGroup 611 1 [anon_sym_LPAREN]; AGroup 615 1 [anon_sym_POUND];
     AGroup 631 1 [sym_kSpecialize]; AGroup 651 1 [sym_kInherited]; AGroup 657 1 [sym_kString];
     AGroup 14951 1 [sym_kIf]; AGroup 3 2 syms_5; AGroup 613 2 syms_6; AGroup 617 2 syms_7;
     AGroup 619 2 syms_8; AGroup 621 2 syms_9; AGroup 623 2 syms_10; AGroup 645 2 syms_11;
     SGroup 7084 2 syms_12; SGroup 6066 3 syms_13; SGroup 7335 4 syms_14; AGroup 625 5 syms_15;
     AGroup 14765 11 syms_18; SGroup 7013 14 syms_17]);
   (404, 21, [AGroup 5 1 [sym_ppDirective]; AGroup 609 1 [anon_sym_LBRACK];
     AGroup 611 1 [anon_sym_LPAREN]; AGroup 615 1 [anon_sym_POUND];
     AGroup 631 1 [sym_kSpecialize]; AGroup 651 1 [sym_kInherited]; AGroup 657 1 [sym_kString];
     AGroup 14951 1 [sym_kIf]; AGroup 3 2 syms_5; AGroup 613 2 syms_6; AGroup 617 2 syms_7;
     AGroup 619 2 syms_8; AGroup 621 2 syms_9; AGroup 623 2 syms_10; AGroup 645 2 syms_11;
     SGroup 7084 2 syms_12; SGroup 6066 3 syms_13; SGroup 7334 4 syms_14; AGroup 625 5 syms_15;
     AGroup 14747 11 syms_18; SGroup 7013 14 syms_17]);
   (508, 21, [AGroup 5 1 [sym_ppDirective]; AGroup 14953 1 [anon_sym_LBRACK];
     AGroup 14955 1 [anon_sym_LPAREN]; AGroup 14959 1 [anon_sym_POUND];
     AGroup 14971 1 [sym_kSpecialize]; AGroup 14975 1 [sym_kIf]; AGroup 14977 1 [sym_kInherited];
     AGroup 14979 1 [sym_kString]; AGroup 3 2 syms_5; AGroup 14957 2 syms_6;
     AGroup 14961 2 syms_7; AGroup 14963 2 syms_8; AGroup 14965 2 syms_9; AGroup 14967 2 syms_10;
     AGroup 14973 2 syms_11; SGroup 7196 2 syms_12; SGroup 6178 3 syms_13; SGroup 7502 4 syms_14;
     AGroup 14969 5 syms_15; AGroup 14747 10 syms_19; SGroup 7086 14 syms_17]);
   (611, 22, [AGroup 5 1 [sym_ppDirective]; AGroup 14983 1 [anon_sym_LBRACK];
     AGroup 14985 1 [anon_sym_LPAREN]; AGroup 14989 1 [anon_sym_POUND];
     AGroup 15001 1 [sym_kSpecialize]; AGroup 15005 1 [sym_kIf]; AGroup 15007 1 [sym_kInherited];
     AGroup 15009 1 [sym_kString]; SGroup 4069 1 [aux_sym_declProp_repeat1]; AGroup 3 2 syms_5;
     AGroup 14987 2 syms_6; AGroup 14991 2 syms_7; AGroup 14993 2 syms_8; AGroup 14995 2 syms_9;
     AGroup 14997 2 syms_10; AGroup 15003 2 syms_11; SGroup 7132 2 syms_12;
     SGroup 6248 3 syms_13; SGroup 7397 4 syms_14; AGroup 14999 5 syms_15;
     AGroup 14981 9 syms_20; SGroup 7054 14 syms_17]);
   (716, 21, [AGroup 5 1 [sym_ppDirective]; AGroup 14953 1 [anon_sym_LBRACK];
     AGroup 14955 1 [anon_sym_LPAREN]; AGroup 14959 1 [anon_sym_POUND];
     AGroup 14971 1 [sym_kSpecialize]; AGroup 14975 1 [sym_kIf]; AGroup 14977 1 [sym_kInherited];
     AGroup 14979 1 [sym_kString]; AGroup 3 2 syms_5; AGroup 14957 2 syms_6;
     AGroup 14961 2 syms_7; AGroup 14963 2 syms_8; AGroup 14965 2 syms_9; AGroup 14967 2 syms_10;
     AGroup 14973 2 syms_11; SGroup 7196 2 syms_12; SGroup 6178 3 syms_13; SGroup 7503 4 syms_14;
     AGroup 14969 5 syms_15; AGroup 14765 10 syms_19; SGroup 7086 14 syms_17]);
   (819, 27, [AGroup 5 1 [sym_ppDirective]; AGroup 2261 1 [sym_kEnd]; AGroup 15011 1 [anon_sym_LBRACK];
     AGroup 15013 1 [anon_sym_LPAREN]; AGroup 15017 1 [anon_sym_POUND];
     AGroup 15029 1 [sym_kSpecialize]; AGroup 15035 1 [sym_kIf]; AGroup 15037 1 [sym_kInherited];
     AGroup 15039 1 [sym_kString]; SGroup 889 1 [sym_caseLabel];
     SGroup 4029 1 [aux_sym_caseLabel_repeat1]; SGroup 12663 1 [sym_caseCaseTr];
     SGroup 13480 1 [sym_range]; AGroup 3 2 syms_5; AGroup 15015 2 syms_6; AGroup 15019 2 syms_7;
     AGroup 15021 2 syms_8; AGroup 15023 2 syms_9; AGroup 15025 2 syms_10;
     AGroup 15031 2 syms_21; AGroup 15033 2 syms_11; SGroup 2919 2 syms_22;
     SGroup 8466 2 syms_12; SGroup 7201 3 syms_13; SGroup 9515 4 syms_14; AGroup 15027 5 syms_15;
     SGroup 7990 14 syms_17]);
   (933, 27, [AGroup 5 1 [sym_ppDirective]; AGroup 15011 1 [anon_sym_LBRACK];
     AGroup 15013 1 [anon_sym_LPAREN]; AGroup 15017 1 [anon_sym_POUND];
     AGroup 15029 1 [sym_kSpecialize]; AGroup 15035 1 [sym_kIf]; AGroup 15037 1 [sym_kInherited];
     AGroup 15039 1 [sym_kString]; AGroup 15043 1 [sym_kEnd]; SGroup 889 1 [sym_caseLabel];
     SGroup 4029 1 [aux_sym_caseLabel_repeat1]; SGroup 12675 1 [sym_caseCaseTr];
     SGroup 13480 1 [sym_range]; AGroup 3 2 syms_5; AGroup 15015 2 syms_6; AGroup 15019 2 syms_7;
     AGroup 15021 2 syms_8; AGroup 15023 2 syms_9; AGroup 15025 2 syms_10;
     AGroup 15033 2 syms_11; AGroup 15041 2 syms_21; SGroup 2789 2 syms_22;
     SGroup 8466 2 syms_12; SGroup 7201 3 syms_13; SGroup 9515 4 syms_14; AGroup 15027 5 syms_15;
     SGroup 7990 14 syms_17]);
   (1047, 27, [AGroup 5 1 [sym_ppDirective]; AGroup 2154 1 [sym_kEnd]; AGroup 15011 1 [anon_sym_LBRACK];
     AGroup 15013 1 [anon_sym_LPAREN]; AGroup 15017 1 [anon_sym_POUND];
     AGroup 15029 1 [sym_kSpecialize]; AGroup 15035 1 [sym_kIf]; AGroup 15037 1 [sym_kInherited];
     AGroup 15039 1 [sym_kString]; SGroup 889 1 [sym_caseLabel];
     SGroup 4029 1 [aux_sym_caseLabel_repeat1]; SGroup 12482 1 [sym_caseCaseTr];
     SGroup 13480 1 [sym_range]; AGroup 3 2 syms_5; AGroup 15015 2 syms_6; AGroup 15019 2 syms_7;
     AGroup 15021 2 syms_8; AGroup 15023 2 syms_9; AGroup 15025 2 syms_10;
     AGroup 15033 2 syms_11; AGroup 15045 2 syms_21; SGroup 2919 2 syms_22;
     SGroup 8466 2 syms_12; SGroup 7201 3 syms_13; SGroup 9515 4 syms_14; AGroup 15027 5 syms_15;
     SGroup 7990 14 syms_17]);
   (1161, 27, [AGroup 5 1 [sym_ppDirective]; AGroup 1220 1 [sym_kEnd]; AGroup 15011 1 [anon_sym_LBRACK];
     AGroup 15013 1 [anon_sym_LPAREN]; AGroup 15017 1 [anon_sym_POUND];
     AGroup 15029 1 [sym_kSpecialize]; AGroup 15035 1 [sym_kIf]; AGroup 15037 1 [sym_kInherited];
     AGroup 15039 1 [sym_kString]; SGroup 889 1 [sym_caseLabel];
     SGroup 4029 1 [aux_sym_caseLabel_repeat1]; SGroup 12903 1 [sym_caseCaseTr];
     SGroup 13480 1 [sym_range]; AGroup 3 2 syms_5; AGroup 15015 2 syms_6; AGroup 15019 2 syms_7;
     AGroup 15021 2 syms_8; AGroup 15023 2 syms_9; AGroup 15025 2 syms_10;
     AGroup 15033 2 syms_11; AGroup 15047 2 syms_21; SGroup 2919 2 syms_22;
     SGroup 8466 2 syms_12; SGroup 7201 3 syms_13; SGroup 9515 4 syms_14; AGroup 15027 5 syms_15;
     SGroup 7990 14 syms_17]);
   (1275, 27, [AGroup 5 1 [sym_ppDirective]; AGroup 15011 1 [anon_sym_LBRACK];
     AGroup 15013 1 [anon_sym_LPAREN]; AGroup 15017 1 [anon_sym_POUND];
     AGroup 15029 1 [sym_kSpecialize]; AGroup 15035 1 [sym_kIf]; AGroup 15037 1 [sym_kInherited];
     AGroup 15039 1 [sym_kString]; AGroup 15051 1 [sym_kEnd]; SGroup 889 1 [sym_caseLabel];
     SGroup 4029 1 [aux_sym_caseLabel_repeat1]; SGroup 12929 1 [sym_caseCaseTr];
     SGroup 13480 1 [sym_range]; AGroup 3 2 syms_5; AGroup 15015 2 syms_6; AGroup 15019 2 syms_7;
     AGroup 15021 2 syms_8; AGroup 15023 2 syms_9; AGroup 15025 2 syms_10;
     AGroup 15033 2 syms_11; AGroup 15049 2 syms_21; SGroup 2794 2 syms_22;
     SGroup 8466 2 syms_12; SGroup 7201 3 syms_13; SGroup 9515 4 syms_14; AGroup 15027 5 syms_15;
     SGroup 7990 14 syms_17]);
   (1389, 27, [AGroup 5 1 [sym_ppDirective]; AGroup 15011 1 [anon_sym_LBRACK];
     AGroup 15013 1 [anon_sym_LPAREN]; AGroup 15017 1 [anon_sym_POUND];
     AGroup 15029 1 [sym_kSpecialize]; AGroup 15035 1 [sym_kIf]; AGroup 15037 1 [sym_kInherited];
     AGroup 15039 1 [sym_kString]; AGroup 15055 1 [sym_kEnd]; SGroup 889 1 [sym_caseLabel];
     SGroup 4029 1 [aux_sym_caseLabel_repeat1]; SGroup 12554 1 [sym_caseCaseTr];
     SGroup 13480 1 [sym_range]; AGroup 3 2 syms_5; AGroup 15015 2 syms_6; AGroup 15019 2 syms_7;
     AGroup 15021 2 syms_8; AGroup 15023 2 syms_9; AGroup 15025 2 syms_10;
     AGroup 15033 2 syms_11; AGroup 15053 2 syms_21; SGroup 2775 2 syms_22;
     SGroup 8466 2 syms_12; SGroup 7201 3 syms_13; SGroup 9515 4 syms_14; AGroup 15027 5 syms_15;
     SGroup 7990 14 syms_17]);
   (1503, 27, [AGroup 5 1 [sym_ppDirective]; AGroup 15011 1 [anon_sym_LBRACK];
     AGroup 15013 1 [anon_sym_LPAREN]; AGroup 15017 1 [anon_sym_POUND];
     AGroup 15029 1 [sym_kSpecialize]; AGroup 15035 1 [sym_kIf]; AGroup 15037 1 [sym_kInherited];
     AGroup 15039 1 [sym_kString]; AGroup 15059 1 [sym_kEnd]; SGroup 889 1 [sym_caseLabel];
     SGroup 4029 1 [aux_sym_caseLabel_repeat1]; SGroup 12666 1 [sym_caseCaseTr];
     SGroup 13480 1 [sym_range]; AGroup 3 2 syms_5; AGroup 15015 2 syms_6; AGroup 15019 2 syms_7;
     AGroup 15021 2 syms_8; AGroup 15023 2 syms_9; AGroup 15025 2 syms_10;
     AGroup 15033 2 syms_11; AGroup 15057 2 syms_21; SGroup 2770 2 syms_22;
     SGroup 8466 2 syms_12; SGroup 7201 3 syms_13; SGroup 9515 4 syms_14; AGroup 15027 5 syms_15;
     SGroup 7990 14 syms_17]);
   (1617, 27, [AGroup 5 1 [sym_ppDirective]; AGroup 15011 1 [anon_sym_LBRACK];
     AGroup 15013 1 [anon_sym_LPAREN]; AGroup 15017 1 [anon_sym_POUND];
     AGroup 15029 1 [sym_kSpecialize]; AGroup 15035 1 [sym_kIf]; AGroup 15037 1 [sym_kInherited];
     AGroup 15039 1 [sym_kString]; AGroup 15063 1 [sym_kEnd]; SGroup 889 1 [sym_caseLabel];
     SGroup 4029 1 [aux_sym_caseLabel_repeat1]; SGroup 12496 1 [sym_caseCaseTr];
     SGroup 13480 1 [sym_range]; AGroup 3 2 syms_5; AGroup 15015 2 syms_6; AGroup 15019 2 syms_7;
     AGroup 15021 2 syms_8; AGroup 15023 2 syms_9; AGroup 15025 2 syms_10;
     AGroup 15033 2 syms_11; AGroup 15061 2 syms_21; SGroup 2779 2 syms_22;
     SGroup 8466 2 syms_12; SGroup 7201 3 syms_13; SGroup 9515 4 syms_14; AGroup 15027 5 syms_15;
     SGroup 7990 14 syms_17]);
   (1731, 27, [AGroup 5 1 [sym_ppDirective]; AGroup 2467 1 [sym_kEnd]; AGroup 15011 1 [anon_sym_LBRACK];
     AGroup 15013 1 [anon_sym_LPAREN]; AGroup 15017 1 [anon_sym_POUND];
     AGroup 15029 1 [sym_kSpecialize]; AGroup 15035 1 [sym_kIf]; AGroup 15037 1 [sym_kInherited];
     AGroup 15039 1 [sym_kString]; SGroup 889 1 [sym_caseLabel];
     SGroup 4029 1 [aux_sym_caseLabel_repeat1]; SGroup 12558 1 [sym_caseCaseTr];
     SGroup 13480 1 [sym_range]; AGroup 3 2 syms_5; AGroup 15015 2 syms_6; AGroup 15019 2 syms_7;
     AGroup 15021 2 syms_8; AGroup 15023 2 syms_9; AGroup 15025 2 syms_10;
     AGroup 15033 2 syms_11; AGroup 15065 2 syms_21; SGroup 2919 2 syms_22;
     SGroup 8466 2 syms_12; SGroup 7201 3 syms_13; SGroup 9515 4 syms_14; AGroup 15027 5 syms_15;
     SGroup 7990 14 syms_17]);
   (1845, 27, [AGroup 5 1 [sym_ppDirective]; AGroup 1873 1 [sym_kEnd]; AGroup 15011 1 [anon_sym_LBRACK];
     AGroup 15013 1 [anon_sym_LPAREN]; AGroup 15017 1 [anon_sym_POUND];
     AGroup 15029 1 [sym_kSpecialize]; AGroup 15035 1 [sym_kIf]; AGroup 15037 1 [sym_kInherited];
     AGroup 15039 1 [sym_kString]; SGroup 889 1 [sym_caseLabel];
     SGroup 4029 1 [aux_sym_caseLabel_repeat1]; SGroup 12842 1 [sym_caseCaseTr];
     SGroup 13480 1 [sym_range]; AGroup 3 2 syms_5; AGroup 15015 2 syms_6; AGroup 15019 2 syms_7;
     AGroup 15021 2 syms_8; AGroup 15023 2 syms_9; AGroup 15025 2 syms_10;
     AGroup 15033 2 syms_11; AGroup 15067 2 syms_21; SGroup 2919 2 syms_22;
     SGroup 8466 2 syms_12; SGroup 7201 3 syms_13; SGroup 9515 4 syms_14; AGroup 15027 5 syms_15;
     SGroup 7990 14 syms_17]);
   (1959, 27, [AGroup 5 1 [sym_ppDirective]; AGroup 1701 1 [sym_kEnd]; AGroup 15011 1 [anon_sym_LBRACK];
     AGroup 15013 1 [anon_sym_LPAREN]; AGroup 15017 1 [anon_sym_POUND];
     AGroup 15029 1 [sym_kSpecialize]; AGroup 15035 1 [sym_kIf]; AGroup 15037 1 [sym_kInherited];
     AGroup 15039 1 [sym_kString]; SGroup 889 1 [sym_caseLabel];
     SGroup 4029 1 [aux_sym_caseLabel_repeat1]; SGroup 12518 1 [sym_caseCaseTr];
     SGroup 13480 1 [sym_range]; AGroup 3 2 syms_5; AGroup 15015 2 syms_6; AGroup 15019 2 syms_7;
     AGroup 15021 2 syms_8; AGroup 15023 2 syms_9; AGroup 15025 2 syms_10;
     AGroup 15033 2 syms_11; AGroup 15069 2 syms_21; SGroup 2919 2 syms_22;
     SGroup 8466 2 syms_12; SGroup 7201 3 syms_13; SGroup 9515 4 syms_14; AGroup 15027 5 syms_15;
     SGroup 7990 14 syms_17]);
   (2073, 21, [AGroup 5 1 [sym_ppDirective]; AGroup 7968 1 [anon_sym_LBRACK];
     AGroup 7970 1 [anon_sym_LPAREN]; AGroup 7974 1 [anon_sym_POUND];
     AGroup 7990 1 [sym_kSpecialize]; AGroup 8010 1 [sym_kInherited];
     AGroup 8016 1 [sym_kString]; AGroup 15071 1 [sym_kIf]; AGroup 3 2 syms_5;
     AGroup 7972 2 syms_6; AGroup 7976 2 syms_7; AGroup 7978 2 syms_8; AGroup 7980 2 syms_9;
     AGroup 7982 2 syms_10; AGroup 8004 2 syms_11; SGroup 7299 2 syms_12; SGroup 6388 3 syms_13;
     SGroup 7771 4 syms_14; AGroup 7984 5 syms_15; AGroup 14747 9 syms_23; SGroup 7138 14 syms_17]);
   (2175, 27, [AGroup 5 1 [sym_ppDirective]; AGroup 2170 1 [sym_kEnd]; AGroup 15011 1 [anon_sym_LBRACK];
     AGroup 15013 1 [anon_sym_LPAREN]; AGroup 15017 1 [anon_sym_POUND];
     AGroup 15029 1 [sym_kSpecialize]; AGroup 15035 1 [sym_kIf]; AGroup 15037 1 [sym_kInherited];
     AGroup 15039 1 [sym_kString]; SGroup 889 1 [sym_caseLabel];
     SGroup 4029 1 [aux_sym_caseLabel_repeat1]; SGroup 12499 1 [sym_caseCaseTr];
     SGroup 13480 1 [sym_range]; AGroup 3 2 syms_5; AGroup 15015 2 syms_6; AGroup 15019 2 syms_7;
     AGroup 15021 2 syms_8; AGroup 15023 2 syms_9; AGroup 15025 2 syms_10;
     AGroup 15033 2 syms_11; AGroup 15073 2 syms_21; SGroup 2919 2 syms_22;
     SGroup 8466 2 syms_12; SGroup 7201 3 syms_13; SGroup 9515 4 syms_14; AGroup 15027 5 syms_15;
     SGroup 7990 14 syms_17]);
   (2289, 27, [AGroup 5 1 [sym_ppDirective]; AGroup 15011 1 [anon_sym_LBRACK];
     AGroup 15013 1 [anon_sym_LPAREN]; AGroup 15017 1 [anon_sym_POUND];
     AGroup 15029 1 [sym_kSpecialize]; AGroup 15035 1 [sym_kIf]; AGroup 15037 1 [sym_kInherited];
     AGroup 15039 1 [sym_kString]; AGroup 15077 1 [sym_kEnd]; SGroup 889 1 [sym_caseLabel];
     SGroup 4029 1 [aux_sym_caseLabel_repeat1]; SGroup 12517 1 [sym_caseCaseTr];
     SGroup 13480 1 [sym_range]; AGroup 3 2 syms_5; AGroup 15015 2 syms_6; AGroup 15019 2 syms_7;
     AGroup 15021 2 syms_8; AGroup 15023 2 syms_9; AGroup 15025 2 syms_10;
     AGroup 15033 2 syms_11; AGroup 15075 2 syms_21; SGroup 2784 2 syms_22;
     SGroup 8466 2 syms_12; SGroup 7201 3 syms_13; SGroup 9515 4 syms_14; AGroup 15027 5 syms_15;
     SGroup 7990 14 syms_17]);
   (2403, 27, [AGroup 5 1 [sym_ppDirective]; AGroup 1717 1 [sym_kEnd]; AGroup 15011 1 [anon_sym_LBRACK];
     AGroup 15013 1 [anon_sym_LPAREN]; AGroup 15017 1 [anon_sym_POUND];
     AGroup 15029 1 [sym_kSpecialize]; AGroup 15035 1 [sym_kIf]; AGroup 15037 1 [sym_kInherited];
     AGroup 15039 1 [sym_kString]; SGroup 889 1 [sym_caseLabel];
     SGroup 4029 1 [aux_sym_caseLabel_repeat1]; SGroup 12661 1 [sym_caseCaseTr];
     SGroup 13480 1 [sym_range]; AGroup 3 2 syms_5; AGroup 15015 2 syms_6; AGroup 15019 2 syms_7;
     AGroup 15021 2 syms_8; AGroup 15023 2 syms_9; AGroup 15025 2 syms_10;
     AGroup 15033 2 syms_11; AGroup 15079 2 syms_21; SGroup 2919 2 syms_22;
     SGroup 8466 2 syms_12; SGroup 7201 3 syms_13; SGroup 9515 4 syms_14; AGroup 15027 5 syms_15;
     SGroup 7990 14 syms_17]);
   (2517, 27, [AGroup 5 1 [sym_ppDirective]; AGroup 15011 1 [anon_sym_LBRACK];
     AGroup 15013 1 [anon_sym_LPAREN]; AGroup 15017 1 [anon_sym_POUND];
     AGroup 15029 1 [sym_kSpecialize]; AGroup 15035 1 [sym_kIf]; AGroup 15037 1 [sym_kInherited];
     AGroup 15039 1 [sym_kString]; AGroup 15083 1 [sym_kEnd]; SGroup 889 1 [sym_caseLabel];
     SGroup 4029 1 [aux_sym_caseLabel_repeat1]; SGroup 12899 1 [sym_caseCaseTr];
     SGroup 13480 1 [sym_range]; AGroup 3 2 syms_5; AGroup 15015 2 syms_6; AGroup 15019 2 syms_7;
     AGroup 15021 2 syms_8; AGroup 15023 2 syms_9; AGroup 15025 2 syms_10;
     AGroup 15033 2 syms_11; AGroup 15081 2 syms_21; SGroup 2791 2 syms_22;
     SGroup 8466 2 syms_12; SGroup 7201 3 syms_13; SGroup 9515 4 syms_14; AGroup 15027 5 syms_15;
     SGroup 7990 14 syms_17]);
   (2631, 27, [AGroup 5 1 [sym_ppDirective]; AGroup 15011 1 [anon_sym_LBRACK];
     AGroup 15013 1 [anon_sym_LPAREN]; AGroup 15017 1 [anon_sym_POUND];
     AGroup 15029 1 [sym_kSpecialize]; AGroup 15035 1 [sym_kIf]; AGroup 15037 1 [sym_kInherited];
     AGroup 15039 1 [sym_kString]; AGroup 15087 1 [sym_kEnd]; SGroup 889 1 [sym_caseLabel];
     SGroup 4029 1 [aux_sym_caseLabel_repeat1]; SGroup 12597 1 [sym_caseCaseTr];
     SGroup 13480 1 [sym_range]; AGroup 3 2 syms_5; AGroup 15015 2 syms_6; AGroup 15019 2 syms_7;
     AGroup 15021 2 syms_8; AGroup 15023 2 syms_9; AGroup 15025 2 syms_10;
     AGroup 15033 2 syms_11; AGroup 15085 2 syms_21; SGroup 2788 2 syms_22;
     SGroup 8466 2 syms_12; SGroup 7201 3 syms_13; SGroup 9515 4 syms_14; AGroup 15027 5 syms_15;
     SGroup 7990 14 syms_17]);
   (2745, 27, [AGroup 5 1 [sym_ppDirective]; AGroup 2186 1 [sym_kEnd]; AGroup 15011 1 [anon_sym_LBRACK];
     AGroup 15013 1 [anon_sym_LPAREN]; AGroup 15017 1 [anon_sym_POUND];
     AGroup 15029 1 [sym_kSpecialize]; AGroup 15035 1 [sym_kIf]; AGroup 15037 1 [sym_kInherited];
     AGroup 15039 1 [sym_kString]; SGroup 889 1 [sym_caseLabel];
     SGroup 4029 1 [aux_sym_caseLabel_repeat1]; SGroup 12524 1 [sym_caseCaseTr];
     SGroup 13480 1 [sym_range]; AGroup 3 2 syms_5; AGroup 15015 2 syms_6; AGroup 15019 2 syms_7;
     AGroup 15021 2 syms_8; AGroup 15023 2 syms_9; AGroup 15025 2 syms_10;
     AGroup 15033 2 syms_11; AGroup 15089 2 syms_21; SGroup 2919 2 syms_22;
     SGroup 8466 2 syms_12; SGroup 7201 3 syms_13; SGroup 9515 4 syms_14; AGroup 15027 5 syms_15;
     SGroup 7990 14 syms_17]);
   (2859, 27, [AGroup 5 1 [sym_ppDirective]; AGroup 15011 1 [anon_sym_LBRACK];
     AGroup 15013 1 [anon_sym_LPAREN]; AGroup 15017 1 [anon_sym_POUND];
     AGroup 15029 1 [sym_kSpecialize]; AGroup 15035 1 [sym_kIf]; AGroup 15037 1 [sym_kInherited];
     AGroup 15039 1 [sym_kString]; AGroup 15093 1 [sym_kEnd]; SGroup 889 1 [sym_caseLabel];
     SGroup 4029 1 [aux_sym_caseLabel_repeat1]; SGroup 12934 1 [sym_caseCaseTr];
     SGroup 13480 1 [sym_range]; AGroup 3 2 syms_5; AGroup 15015 2 syms_6; AGroup 15019 2 syms_7;
     AGroup 15021 2 syms_8; AGroup 15023 2 syms_9; AGroup 15025 2 syms_10;
     AGroup 15033 2 syms_11; AGroup 15091 2 syms_21; SGroup 2786 2 syms_22;
     SGroup 8466 2 syms_12; SGroup 7201 3 syms_13; SGroup 9515 4 syms_14; AGroup 15027 5 syms_15;
     SGroup 7990 14 syms_17]);
   (2973, 27, [AGroup 5 1 [sym_ppDirective]; AGroup 1685 1 [sym_kEnd]; AGroup 15011 1 [anon_sym_LBRACK];
     AGroup 15013 1 [anon_sym_LPAREN]; AGroup 15017 1 [anon_sym_POUND];
     AGroup 15029 1 [sym_kSpecialize]; AGroup 15035 1 [sym_kIf]; AGroup 15037 1 [sym_kInherited];
     AGroup 15039 1 [sym_kString]; SGroup 889 1 [sym_caseLabel];
     SGroup 4029 1 [aux_sym_caseLabel_repeat1]; SGroup 12957 1 [sym_caseCaseTr];
     SGroup 13480 1 [sym_range]; AGroup 3 2 syms_5; AGroup 15015 2 syms_6; AGroup 15019 2 syms_7;
     AGroup 15021 2 syms_8; AGroup 15023 2 syms_9; AGroup 15025 2 syms_10;
     AGroup 15033 2 syms_11; AGroup 15095 2 syms_21; SGroup 2919 2 syms_22;
     SGroup 8466 2 syms_12; SGroup 7201 3 syms_13; SGroup 9515 4 syms_14; AGroup 15027 5 syms_15;
     SGroup 7990 14 syms_17]);
   (3087, 27, [AGroup 5 1 [sym_ppDirective]; AGroup 1290 1 [sym_kEnd]; AGroup 15011 1 [anon_sym_LBRACK];
     AGroup 15013 1 [anon_sym_LPAREN]; AGroup 15017 1 [anon_sym_POUND];
     AGroup 15029 1 [sym_kSpecialize]; AGroup 15035 1 [sym_kIf]; AGroup 15037 1 [sym_kInherited];
     AGroup 15039 1 [sym_kString]; SGroup 889 1 [sym_caseLabel];
     SGroup 4029 1 [aux_sym_caseLabel_repeat1]; SGroup 12714 1 [sym_caseCaseTr];
     SGroup 13480 1 [sym_range]; AGroup 3 2 syms_5; AGroup 15015 2 syms_6; AGroup 15019 2 syms_7;
     AGroup 15021 2 syms_8; AGroup 15023 2 syms_9; AGroup 15025 2 syms_10;
     AGroup 15033 2 syms_11; AGroup 15097 2 syms_21; SGroup 2919 2 syms_22;
     SGroup 8466 2 syms_12; SGroup 7201 3 syms_13; SGroup 9515 4 syms_14; AGroup 15027 5 syms_15;
     SGroup 7990 14 syms_17]);
   (3201, 27, [AGroup 5 1 [sym_ppDirective]; AGroup 2578 1 [sym_kEnd]; AGroup 15011 1 [anon_sym_LBRACK];
     AGroup 15013 1 [anon_sym_LPAREN]; AGroup 15017 1 [anon_sym_POUND];
     AGroup 15029 1 [sym_kSpecialize]; AGroup 15035 1 [sym_kIf]; AGroup 15037 1 [sym_kInherited];
     AGroup 15039 1 [sym_kString]; SGroup 889 1 [sym_caseLabel];
     SGroup 4029 1 [aux_sym_caseLabel_repeat1]; SGroup 12601 1 [sym_caseCaseTr];
     SGroup 13480 1 [sym_range]; AGroup 3 2 syms_5; AGroup 15015 2 syms_6; AGroup 15019 2 syms_7;
     AGroup 15021 2 syms_8; AGroup 15023 2 syms_9; AGroup 15025 2 syms_10;
     AGroup 15033 2 syms_11; AGroup 15099 2 syms_21; SGroup 2919 2 syms_22;
     SGroup 8466 2 syms_12; SGroup 7201 3 syms_13; SGroup 9515 4 syms_14; AGroup 15027 5 syms_15;
     SGroup 7990 14 syms_17]);
   (3315, 27, [AGroup 5 1 [sym_ppDirective]; AGroup 1420 1 [sym_kEnd]; AGroup 15011 1 [anon_sym_LBRACK];
     AGroup 15013 1 [anon_sym_LPAREN]; AGroup 15017 1 [anon_sym_POUND];
     AGroup 15029 1 [sym_kSpecialize]; AGroup 15035 1 [sym_kIf]; AGroup 15037 1 [sym_kInherited];
     AGroup 15039 1 [sym_kString]; SGroup 889 1 [sym_caseLabel];
     SGroup 4029 1 [aux_sym_caseLabel_repeat1]; SGroup 12741 1 [sym_caseCaseTr];
     SGroup 13480 1 [sym_range]; AGroup 3 2 syms_5; AGroup 15015 2 syms_6; AGroup 15019 2 syms_7;
     AGroup 15021 2 syms_8; AGroup 15023 2 syms_9; AGroup 15025 2 syms_10;
     AGroup 15033 2 syms_11; AGroup 15101 2 syms_21; SGroup 2919 2 syms_22;
     SGroup 8466 2 syms_12; SGroup 7201 3 syms_13; SGroup 9515 4 syms_14; AGroup 15027 5 syms_15;
     SGroup 7990 14 syms_17]);
   (3429, 27, [AGroup 5 1 [sym_ppDirective]; AGroup 1607 1 [sym_kEnd]; AGroup 15011 1 [anon_sym_LBRACK];
     AGroup 15013 1 [anon_sym_LPAREN]; AGroup 15017 1 [anon_sym_POUND];
     AGroup 15029 1 [sym_kSpecialize]; AGroup 15035 1 [sym_kIf]; AGroup 15037 1 [sym_kInherited];
     AGroup 15039 1 [sym_kString]; SGroup 889 1 [sym_caseLabel];
     SGroup 4029 1 [aux_sym_caseLabel_repeat1]; SGroup 12754 1 [sym_caseCaseTr];
     SGroup 13480 1 [sym_range]; AGroup 3 2 syms_5; AGroup 15015 2 syms_6; AGroup 15019 2 syms_7;
     AGroup 15021 2 syms_8; AGroup 15023 2 syms_9; AGroup 15025 2 syms_10;
     AGroup 15033 2 syms_11; AGroup 15103 2 syms_21; SGroup 2919 2 syms_22;
     SGroup 8466 2 syms_12; SGroup 7201 3 syms_13; SGroup 9515 4 syms_14; AGroup 15027 5 syms_15;
     SGroup 7990 14 syms_17]);
   (3543, 27, [AGroup 5 1 [sym_ppDirective]; AGroup 1982 1 [sym_kEnd]; AGroup 15011 1 [anon_sym_LBRACK];
     AGroup 15013 1 [anon_sym_LPAREN]; AGroup 15017 1 [anon_sym_POUND];
     AGroup 15029 1 [sym_kSpecialize]; AGroup 15035 1 [sym_kIf]; AGroup 15037 1 [sym_kInherited];
     AGroup 15039 1 [sym_kString]; SGroup 889 1 [sym_caseLabel];
     SGroup 4029 1 [aux_sym_caseLabel_repeat1]; SGroup 12905 1 [sym_caseCaseTr];
     SGroup 13480 1 [sym_range]; AGroup 3 2 syms_5; AGroup 15015 2 syms_6; AGroup 15019 2 syms_7;
     AGroup 15021 2 syms_8; AGroup 15023 2 syms_9; AGroup 15025 2 syms_10;
     AGroup 15033 2 syms_11; AGroup 15105 2 syms_21; SGroup 2919 2 syms_22;
     SGroup 8466 2 syms_12; SGroup 7201 3 syms_13; SGroup 9515 4 syms_14; AGroup 15027 5 syms_15;
     SGroup 7990 14 syms_17]);
   (3657, 27, [AGroup 5 1 [sym_ppDirective]; AGroup 15011 1 [anon_sym_LBRACK];
     AGroup 15013 1 [anon_sym_LPAREN]; AGroup 15017 1 [anon_sym_POUND];
     AGroup 15029 1 [sym_kSpecialize]; AGroup 15035 1 [sym_kIf]; AGroup 15037 1 [sym_kInherited];
     AGroup 15039 1 [sym_kString]; AGroup 15109 1 [sym_kEnd]; SGroup 889 1 [sym_caseLabel];
     SGroup 4029 1 [aux_sym_caseLabel_repeat1]; SGroup 12559 1 [sym_caseCaseTr];
     SGroup 13480 1 [sym_range]; AGroup 3 2 syms_5; AGroup 15015 2 syms_6; AGroup 15019 2 syms_7;
     AGroup 15021 2 syms_8; AGroup 15023 2 syms_9; AGroup 15025 2 syms_10;
     AGroup 15033 2 syms_11; AGroup 15107 2 syms_21; SGroup 2793 2 syms_22;
     SGroup 8466 2 syms_12; SGroup 7201 3 syms_13; SGroup 9515 4 syms_14; AGroup 15027 5 syms_15;
     SGroup 7990 14 syms_17]);
   (3771, 27, [AGroup 5 1 [sym_ppDirective]; AGroup 2202 1 [sym_kEnd]; AGroup 15011 1 [anon_sym_LBRACK];
     AGroup 15013 1 [anon_sym_LPAREN]; AGroup 15017 1 [anon_sym_POUND];
     AGroup 15029 1 [sym_kSpecialize]; AGroup 15035 1 [sym_kIf]; AGroup 15037 1 [sym_kInherited];
     AGroup 15039 1 [sym_kString]; SGroup 889 1 [sym_caseLabel];
     SGroup 4029 1 [aux_sym_caseLabel_repeat1]; SGroup 12568 1 [sym_caseCaseTr];
     SGroup 13480 1 [sym_range]; AGroup 3 2 syms_5; AGroup 15015 2 syms_6; AGroup 15019 2 syms_7;
     AGroup 15021 2 syms_8; AGroup 15023 2 syms_9; AGroup 15025 2 syms_10;
     AGroup 15033 2 syms_11; AGroup 15111 2 syms_21; SGroup 2919 2 syms_22;
     SGroup 8466 2 syms_12; SGroup 7201 3 syms_13; SGroup 9515 4 syms_14; AGroup 15027 5 syms_15;
     SGroup 7990 14 syms_17]);
   (3885, 27, [AGroup 5 1 [sym_ppDirective]; AGroup 1371 1 [sym_kEnd]; AGroup 15011 1 [anon_sym_LBRACK];
     AGroup 15013 1 [anon_sym_LPAREN]; AGroup 15017 1 [anon_sym_POUND];
     AGroup 15029 1 [sym_kSpecialize]; AGroup 15035 1 [sym_kIf]; AGroup 15037 1 [sym_kInherited];
     AGroup 15039 1 [sym_kString]; SGroup 889 1 [sym_caseLabel];
     SGroup 4029 1 [aux_sym_caseLabel_repeat1]; SGroup 12946 1 [sym_caseCaseTr];
     SGroup 13480 1 [sym_range]; AGroup 3 2 syms_5; AGroup 15015 2 syms_6; AGroup 15019 2 syms_7;
     AGroup 15021 2 syms_8; AGroup 15023 2 syms_9; AGroup 15025 2 syms_10;
     AGroup 15033 2 syms_11; AGroup 15113 2 syms_21; SGroup 2919 2 syms_22;
     SGroup 8466 2 syms_12; SGroup 7201 3 syms_13; SGroup 9515 4 syms_14; AGroup 15027 5 syms_15;
     SGroup 7990 14 syms_17]);
   (3999, 27, [AGroup 5 1 [sym_ppDirective]; AGroup 15011 1 [anon_sym_LBRACK];
     AGroup 15013 1 [anon_sym_LPAREN]; AGroup 15017 1 [anon_sym_POUND];
     AGroup 15029 1 [sym_kSpecialize]; AGroup 15035 1 [sym_kIf]; AGroup 15037 1 [sym_kInherited];
     AGroup 15039 1 [sym_kString]; AGroup 15117 1 [sym_kEnd]; SGroup 889 1 [sym_caseLabel];
     SGroup 4029 1 [aux_sym_caseLabel_repeat1]; SGroup 12629 1 [sym_caseCaseTr];
     SGroup 13480 1 [sym_range]; AGroup 3 2 syms_5; AGroup 15015 2 syms_6; AGroup 15019 2 syms_7;
     AGroup 15021 2 syms_8; AGroup 15023 2 syms_9; AGroup 15025 2 syms_10;
     AGroup 15033 2 syms_11; AGroup 15115 2 syms_21; SGroup 2797 2 syms_22;
     SGroup 8466 2 syms_12; SGroup 7201 3 syms_13; SGroup 9515 4 syms_14; AGroup 15027 5 syms_15;
     SGroup 7990 14 syms_17]);
   (4113, 21, [AGroup 5 1 [sym_ppDirective]; AGroup 7968 1 [anon_sym_LBRACK];
     AGroup 7970 1 [anon_sym_LPAREN]; AGroup 7974 1 [anon_sym_POUND];
     AGroup 7990 1 [sym_kSpecialize]; AGroup 8010 1 [sym_kInherited];
     AGroup 8016 1 [sym_kString]; AGroup 15071 1 [sym_kIf]; AGroup 3 2 syms_5;
     AGroup 7972 2 syms_6; AGroup 7976 2 syms_7; AGroup 7978 2 syms_8; AGroup 7980 2 syms_9;
     AGroup 7982 2 syms_10; AGroup 8004 2 syms_11; SGroup 7299 2 syms_12; SGroup 6388 3 syms_13;
     SGroup 7774 4 syms_14; AGroup 7984 5 syms_15; AGroup 14765 9 syms_23; SGroup 7138 14 syms_17]);
   (4215, 27, [AGroup 5 1 [sym_ppDirective]; AGroup 2720 1 [sym_kEnd]; AGroup 15011 1 [anon_sym_LBRACK];
     AGroup 15013 1 [anon_sym_LPAREN]; AGroup 15017 1 [anon_sym_POUND];
     AGroup 15029 1 [sym_kSpecialize]; AGroup 15035 1 [sym_kIf]; AGroup 15037 1 [sym_kInherited];
     AGroup 15039 1 [sym_kString]; SGroup 889 1 [sym_caseLabel];
     SGroup 4029 1 [aux_sym_caseLabel_repeat1]; SGroup 12633 1 [sym_caseCaseTr];
     SGroup 13480 1 [sym_range]; AGroup 3 2 syms_5; AGroup 15015 2 syms_6; AGroup 15019 2 syms_7;
     AGroup 15021 2 syms_8; AGroup 15023 2 syms_9; AGroup 15025 2 syms_10;
     AGroup 15033 2 syms_11; AGroup 15119 2 syms_21; SGroup 2919 2 syms_22;
     SGroup 8466 2 syms_12; SGroup 7201 3 syms_13; SGroup 9515 4 syms_14; AGroup 15027 5 syms_15;
     SGroup 7990 14 syms_17]);
   (4329, 27, [AGroup 5 1 [sym_ppDirective]; AGroup 15011 1 [anon_sym_LBRACK];
     AGroup 15013 1 [anon_sym_LPAREN]; AGroup 15017 1 [anon_sym_POUND];
     AGroup 15029 1 [sym_kSpecialize]; AGroup 15035 1 [sym_kIf]; AGroup 15037 1 [sym_kInherited];
     AGroup 15039 1 [sym_kString]; AGroup 15123 1 [sym_kEnd]; SGroup 889 1 [sym_caseLabel];
     SGroup 4029 1 [aux_sym_caseLabel_repeat1]; SGroup 12604 1 [sym_caseCaseTr];
     SGroup 13480 1 [sym_range]; AGroup 3 2 syms_5; AGroup 15015 2 syms_6; AGroup 15019 2 syms_7;
     AGroup 15021 2 syms_8; AGroup 15023 2 syms_9; AGroup 15025 2 syms_10;
     AGroup 15033 2 syms_11; AGroup 15121 2 syms_21; SGroup 2799 2 syms_22;
     SGroup 8466 2 syms_12; SGroup 7201 3 syms_13; SGroup 9515 4 syms_14; AGroup 15027 5 syms_15;
     SGroup 7990 14 syms_17]);
   (4443, 27, [AGroup 5 1 [sym_ppDirective]; AGroup 2245 1 [sym_kEnd]; AGroup 15011 1 [anon_sym_LBRACK];
     AGroup 15013 1 [anon_sym_LPAREN]; AGroup 15017 1 [anon_sym_POUND];
     AGroup 15029 1 [sym_kSpecialize]; AGroup 15035 1 [sym_kIf]; AGroup 15037 1 [sym_kInherited];
     AGroup 15039 1 [sym_kString]; SGroup 889 1 [sym_caseLabel];
     SGroup 4029 1 [aux_sym_caseLabel_repeat1]; SGroup 12609 1 [sym_caseCaseTr];
     SGroup 13480 1 [sym_range]; AGroup 3 2 syms_5; AGroup 15015 2 syms_6; AGroup 15019 2 syms_7;
     AGroup 15021 2 syms_8; AGroup 15023 2 syms_9; AGroup 15025 2 syms_10;
     AGroup 15033 2 syms_11; AGroup 15125 2 syms_21; SGroup 2919 2 syms_22;
     SGroup 8466 2 syms_12; SGroup 7201 3 syms_13; SGroup 9515 4 syms_14; AGroup 15027 5 syms_15;
     SGroup 7990 14 syms_17]);
   (4557, 27, [AGroup 5 1 [sym_ppDirective]; AGroup 15011 1 [anon_sym_LBRACK];
     AGroup 15013 1 [anon_sym_LPAREN]; AGroup 15017 1 [anon_sym_POUND];
     AGroup 15029 1 [sym_kSpecialize]; AGroup 15035 1 [sym_kIf]; AGroup 15037 1 [sym_kInherited];
     AGroup 15039 1 [sym_kString]; AGroup 15129 1 [sym_kEnd]; SGroup 889 1 [sym_caseLabel];
     SGroup 4029 1 [aux_sym_caseLabel_repeat1]; SGroup 12587 1 [sym_caseCaseTr];
     SGroup 13480 1 [sym_range]; AGroup 3 2 syms_5; AGroup 15015 2 syms_6; AGroup 15019 2 syms_7;
     AGroup 15021 2 syms_8; AGroup 15023 2 syms_9; AGroup 15025 2 syms_10;
     AGroup 15033 2 syms_11; AGroup 15127 2 syms_21; SGroup 2836 2 syms_22;
     SGroup 8466 2 syms_12; SGroup 7201 3 syms_13; SGroup 9515 4 syms_14; AGroup 15027 5 syms_15;
     SGroup 7990 14 syms_17]);
   (4671, 27, [AGroup 5 1 [sym_ppDirective]; AGroup 15011 1 [anon_sym_LBRACK];
     AGroup 15013 1 [anon_sym_LPAREN]; AGroup 15017 1 [anon_sym_POUND];
     AGroup 15029 1 [sym_kSpecialize]; AGroup 15035 1 [sym_kIf]; AGroup 15037 1 [sym_kInherited];
     AGroup 15039 1 [sym_kString]; AGroup 15133 1 [sym_kEnd]; SGroup 889 1 [sym_caseLabel];
     SGroup 4029 1 [aux_sym_caseLabel_repeat1]; SGroup 12852 1 [sym_caseCaseTr];
     SGroup 13480 1 [sym_range]; AGroup 3 2 syms_5; AGroup 15015 2 syms_6; AGroup 15019 2 syms_7;
     AGroup 15021 2 syms_8; AGroup 15023 2 syms_9; AGroup 15025 2 syms_10;
     AGroup 15033 2 syms_11; AGroup 15131 2 syms_21; SGroup 2809 2 syms_22;
     SGroup 8466 2 syms_12; SGroup 7201 3 syms_13; SGroup 9515 4 syms_14; AGroup 15027 5 syms_15;
     SGroup 7990 14 syms_17]);
   (4785, 21, [AGroup 5 1 [sym_ppDirective]; AGroup 7422 1 [anon_sym_LBRACK];
     AGroup 7424 1 [anon_sym_LPAREN]; AGroup 7428 1 [anon_sym_POUND];
     AGroup 7444 1 [sym_kSpecialize]; AGroup 7462 1 [sym_kInherited];
     AGroup 7468 1 [sym_kString]; AGroup 15135 1 [sym_kIf]; AGroup 3 2 syms_5;
     AGroup 7426 2 syms_6; AGroup 7430 2 syms_7; AGroup 7432 2 syms_8; AGroup 7434 2 syms_9;
     AGroup 7436 2 syms_10; AGroup 7456 2 syms_11; SGroup 7250 2 syms_12; SGroup 6416 3 syms_13;
     SGroup 7753 4 syms_14; AGroup 7438 5 syms_15; AGroup 14765 9 syms_24; SGroup 7153 14 syms_17]);
   (4887, 27, [AGroup 5 1 [sym_ppDirective]; AGroup 15011 1 [anon_sym_LBRACK];
     AGroup 15013 1 [anon_sym_LPAREN]; AGroup 15017 1 [anon_sym_POUND];
     AGroup 15029 1 [sym_kSpecialize]; AGroup 15035 1 [sym_kIf]; AGroup 15037 1 [sym_kInherited];
     AGroup 15039 1 [sym_kString]; AGroup 15139 1 [sym_kEnd]; SGroup 889 1 [sym_caseLabel];
     SGroup 4029 1 [aux_sym_caseLabel_repeat1]; SGroup 12664 1 [sym_caseCaseTr];
     SGroup 13480 1 [sym_range]; AGroup 3 2 syms_5; AGroup 15015 2 syms_6; AGroup 15019 2 syms_7;
     AGroup 15021 2 syms_8; AGroup 15023 2 syms_9; AGroup 15025 2 syms_10;
     AGroup 15033 2 syms_11; AGroup 15137 2 syms_21; SGroup 2805 2 syms_22;
     SGroup 8466 2 syms_12; SGroup 7201 3 syms_13; SGroup 9515 4 syms_14; AGroup 15027 5 syms_15;
     SGroup 7990 14 syms_17]);
   (5001, 27, [AGroup 5 1 [sym_ppDirective]; AGroup 1306 1 [sym_kEnd]; AGroup 15011 1 [anon_sym_LBRACK];
     AGroup 15013 1 [anon_sym_LPAREN]; AGroup 15017 1 [anon_sym_POUND];
     AGroup 15029 1 [sym_kSpecialize]; AGroup 15035 1 [sym_kIf]; AGroup 15037 1 [sym_kInherited];
     AGroup 15039 1 [sym_kString]; SGroup 889 1 [sym_caseLabel];
     SGroup 4029 1 [aux_sym_caseLabel_repeat1]; SGroup 12805 1 [sym_caseCaseTr];
     SGroup 13480 1 [sym_range]; AGroup 3 2 syms_5; AGroup 15015 2 syms_6; AGroup 15019 2 syms_7;
     AGroup 15021 2 syms_8; AGroup 15023 2 syms_9; AGroup 15025 2 syms_10;
     AGroup 15033 2 syms_11; AGroup 15141 2 syms_21; SGroup 2919 2 syms_22;
     SGroup 8466 2 syms_12; SGroup 7201 3 syms_13; SGroup 9515 4 syms_14; AGroup 15027 5 syms_15;
     SGroup 7990 14 syms_17]);
   (5115, 27, [AGroup 5 1 [sym_ppDirective]; AGroup 2769 1 [sym_kEnd]; AGroup 15011 1 [anon_sym_LBRACK];
     AGroup 15013 1 [anon_sym_LPAREN]; AGroup 15017 1 [anon_sym_POUND];
     AGroup 15029 1 [sym_kSpecialize]; AGroup 15035 1 [sym_kIf]; AGroup 15037 1 [sym_kInherited];
     AGroup 15039 1 [sym_kString]; SGroup 889 1 [sym_caseLabel];
     SGroup 4029 1 [aux_sym_caseLabel_repeat1]; SGroup 12668 1 [sym_caseCaseTr];
     SGroup 13480 1 [sym_range]; AGroup 3 2 syms_5; AGroup 15015 2 syms_6; AGroup 15019 2 syms_7;
     AGroup 15021 2 syms_8; AGroup 15023 2 syms_9; AGroup 15025 2 syms_10;
     AGroup 15033 2 syms_11; AGroup 15143 2 syms_21; SGroup 2919 2 syms_22;
     SGroup 8466 2 syms_12; SGroup 7201 3 syms_13; SGroup 9515 4 syms_14; AGroup 15027 5 syms_15;
     SGroup 7990 14 syms_17]);
   (5229, 27, [AGroup 5 1 [sym_ppDirective]; AGroup 15011 1 [anon_sym_LBRACK];
     AGroup 15013 1 [anon_sym_LPAREN]; AGroup 15017 1 [anon_sym_POUND];
     AGroup 15029 1 [sym_kSpecialize]; AGroup 15035 1 [sym_kIf]; AGroup 15037 1 [sym_kInherited];
     AGroup 15039 1 [sym_kString]; AGroup 15147 1 [sym_kEnd]; SGroup 889 1 [sym_caseLabel];
     SGroup 4029 1 [aux_sym_caseLabel_repeat1]; SGroup 12543 1 [sym_caseCaseTr];
     SGroup 13480 1 [sym_range]; AGroup 3 2 syms_5; AGroup 15015 2 syms_6; AGroup 15019 2 syms_7;
     AGroup 15021 2 syms_8; AGroup 15023 2 syms_9; AGroup 15025 2 syms_10;
     AGroup 15033 2 syms_11; AGroup 15145 2 syms_21; SGroup 2844 2 syms_22;
     SGroup 8466 2 syms_12; SGroup 7201 3 syms_13; SGroup 9515 4 syms_14; AGroup 15027 5 syms_15;
     SGroup 7990 14 syms_17]);
   (5343, 27, [AGroup 5 1 [sym_ppDirective]; AGroup 15011 1 [anon_sym_LBRACK];
     AGroup 15013 1 [anon_sym_LPAREN]; AGroup 15017 1 [anon_sym_POUND];
     AGroup 15029 1 [sym_kSpecialize]; AGroup 15035 1 [sym_kIf]; AGroup 15037 1 [sym_kInherited];
     AGroup 15039 1 [sym_kString]; AGroup 15151 1 [sym_kEnd]; SGroup 889 1 [sym_caseLabel];
     SGroup 4029 1 [aux_sym_caseLabel_repeat1]; SGroup 12644 1 [sym_caseCaseTr];
     SGroup 13480 1 [sym_range]; AGroup 3 2 syms_5; AGroup 15015 2 syms_6; AGroup 15019 2 syms_7;
     AGroup 15021 2 syms_8; AGroup 15023 2 syms_9; AGroup 15025 2 syms_10;
     AGroup 15033 2 syms_11; AGroup 15149 2 syms_21; SGroup 2767 2 syms_22;
     SGroup 8466 2 syms_12; SGroup 7201 3 syms_13; SGroup 9515 4 syms_14; AGroup 15027 5 syms_15;
     SGroup 7990 14 syms_17]);
   (5457, 27, [AGroup 5 1 [sym_ppDirective]; AGroup 15011 1 [anon_sym_LBRACK];
     AGroup 15013 1 [anon_sym_LPAREN]; AGroup 15017 1 [anon_sym_POUND];
     AGroup 15029 1 [sym_kSpecialize]; AGroup 15035 1 [sym_kIf]; AGroup 15037 1 [sym_kInherited];
     AGroup 15039 1 [sym_kString]; AGroup 15155 1 [sym_kEnd]; SGroup 889 1 [sym_caseLabel];
     SGroup 4029 1 [aux_sym_caseLabel_repeat1]; SGroup 12797 1 [sym_caseCaseTr];
     SGroup 13480 1 [sym_range]; AGroup 3 2 syms_5; AGroup 15015 2 syms_6; AGroup 15019 2 syms_7;
     AGroup 15021 2 syms_8; AGroup 15023 2 syms_9; AGroup 15025 2 syms_10;
     AGroup 15033 2 syms_11; AGroup 15153 2 syms_21; SGroup 2845 2 syms_22;
     SGroup 8466 2 syms_12; SGroup 7201 3 syms_13; SGroup 9515 4 syms_14; AGroup 15027 5 syms_15;
     SGroup 7990 14 syms_17]);
   (5571, 27, [AGroup 5 1 [sym_ppDirective]; AGroup 1324 1 [sym_kEnd]; AGroup 15011 1 [anon_sym_LBRACK];
     AGroup 15013 1 [anon_sym_LPAREN]; AGroup 15017 1 [anon_sym_POUND];
     AGroup 15029 1 [sym_kSpecialize]; AGroup 15035 1 [sym_kIf]; AGroup 15037 1 [sym_kInherited];
     AGroup 15039 1 [sym_kString]; SGroup 889 1 [sym_caseLabel];
     SGroup 4029 1 [aux_sym_caseLabel_repeat1]; SGroup 12863 1 [sym_caseCaseTr];
     SGroup 13480 1 [sym_range]; AGroup 3 2 syms_5; AGroup 15015 2 syms_6; AGroup 15019 2 syms_7;
     AGroup 15021 2 syms_8; AGroup 15023 2 syms_9; AGroup 15025 2 syms_10;
     AGroup 15033 2 syms_11; AGroup 15157 2 syms_21; SGroup 2919 2 syms_22;
     SGroup 8466 2 syms_12; SGroup 7201 3 syms_13; SGroup 9515 4 syms_14; AGroup 15027 5 syms_15;
     SGroup 7990 14 syms_17]);
   (5685, 27, [AGroup 5 1 [sym_ppDirective]; AGroup 15011 1 [anon_sym_LBRACK];
     AGroup 15013 1 [anon_sym_LPAREN]; AGroup 15017 1 [anon_sym_POUND];
     AGroup 15029 1 [sym_kSpecialize]; AGroup 15035 1 [sym_kIf]; AGroup 15037 1 [sym_kInherited];
     AGroup 15039 1 [sym_kString]; AGroup 15161 1 [sym_kEnd]; SGroup 889 1 [sym_caseLabel];
     SGroup 4029 1 [aux_sym_caseLabel_repeat1]; SGroup 12507 1 [sym_caseCaseTr];
     SGroup 13480 1 [sym_range]; AGroup 3 2 syms_5; AGroup 15015 2 syms_6; AGroup 15019 2 syms_7;
     AGroup 15021 2 syms_8; AGroup 15023 2 syms_9; AGroup 15025 2 syms_10;
     AGroup 15033 2 syms_11; AGroup 15159 2 syms_21; SGroup 2777 2 syms_22;
     SGroup 8466 2 syms_12; SGroup 7201 3 syms_13; SGroup 9515 4 syms_14; AGroup 15027 5 syms_15;
     SGroup 7990 14 syms_17]);
   (5799, 21, [AGroup 5 1 [sym_ppDirective]; AGroup 7422 1 [anon_sym_LBRACK];
     AGroup 7424 1 [anon_sym_LPAREN]; AGroup 7428 1 [anon_sym_POUND];
     AGroup 7444 1 [sym_kSpecialize]; AGroup 7462 1 [sym_kInherited];
     AGroup 7468 1 [sym_kString]; AGroup 15135 1 [sym_kIf]; AGroup 3 2 syms_5;
     AGroup 7426 2 syms_6; AGroup 7430 2 syms_7; AGroup 7432 2 syms_8; AGroup 7434 2 syms_9;
     AGroup 7436 2 syms_10; AGroup 7456 2 syms_11; SGroup 7250 2 syms_12; SGroup 6416 3 syms_13;
     SGroup 7680 4 syms_14; AGroup 7438 5 syms_15; AGroup 14747 9 syms_24; SGroup 7153 14 syms_17]);
   (5901, 27, [AGroup 5 1 [sym_ppDirective]; AGroup 15011 1 [anon_sym_LBRACK];
     AGroup 15013 1 [anon_sym_LPAREN]; AGroup 15017 1 [anon_sym_POUND];
     AGroup 15029 1 [sym_kSpecialize]; AGroup 15035 1 [sym_kIf]; AGroup 15037 1 [sym_kInherited];
     AGroup 15039 1 [sym_kString]; AGroup 15165 1 [sym_kEnd]; SGroup 889 1 [sym_caseLabel];
     SGroup 4029 1 [aux_sym_caseLabel_repeat1]; SGroup 12691 1 [sym_caseCaseTr];
     SGroup 13480 1 [sym_range]; AGroup 3 2 syms_5; AGroup 15015 2 syms_6; AGroup 15019 2 syms_7;
     AGroup 15021 2 syms_8; AGroup 15023 2 syms_9; AGroup 15025 2 syms_10;
     AGroup 15033 2 syms_11; AGroup 15163 2 syms_21; SGroup 2815 2 syms_22;
     SGroup 8466 2 syms_12; SGroup 7201 3 syms_13; SGroup 9515 4 syms_14; AGroup 15027 5 syms_15;
     SGroup 7990 14 syms_17]);
   (6015, 27, [AGroup 5 1 [sym_ppDirective]; AGroup 15011 1 [anon_sym_LBRACK];
     AGroup 15013 1 [anon_sym_LPAREN]; AGroup 15017 1 [anon_sym_POUND];
     AGroup 15029 1 [sym_kSpecialize]; AGroup 15035 1 [sym_kIf]; AGroup 15037 1 [sym_kInherited];
     AGroup 15039 1 [sym_kString]; AGroup 15169 1 [sym_kEnd]; SGroup 889 1 [sym_caseLabel];
     SGroup 4029 1 [aux_sym_caseLabel_repeat1]; SGroup 12689 1 [sym_caseCaseTr];
     SGroup 13480 1 [sym_range]; AGroup 3 2 syms_5; AGroup 15015 2 syms_6; AGroup 15019 2 syms_7;
     AGroup 15021 2 syms_8; AGroup 15023 2 syms_9; AGroup 15025 2 syms_10;
     AGroup 15033 2 syms_11; AGroup 15167 2 syms_21; SGroup 2814 2 syms_22;
     SGroup 8466 2 syms_12; SGroup 7201 3 syms_13; SGroup 9515 4 syms_14; AGroup 15027 5 syms_15;
     SGroup 7990 14 syms_17]);
   (6129, 27, [AGroup 5 1 [sym_ppDirective]; AGroup 2308 1 [sym_kEnd]; AGroup 15011 1 [anon_sym_LBRACK];
     AGroup 15013 1 [anon_sym_LPAREN]; AGroup 15017 1 [anon_sym_POUND];
     AGroup 15029 1 [sym_kSpecialize]; AGroup 15035 1 [sym_kIf]; AGroup 15037 1 [sym_kInherited];
     AGroup 15039 1 [sym_kString]; SGroup 889 1 [sym_caseLabel];
     SGroup 4029 1 [aux_sym_caseLabel_repeat1]; SGroup 12698 1 [sym_caseCaseTr];
     SGroup 13480 1 [sym_range]; AGroup 3 2 syms_5; AGroup 15015 2 syms_6; AGroup 15019 2 syms_7;
     AGroup 15021 2 syms_8; AGroup 15023 2 syms_9; AGroup 15025 2 syms_10;
     AGroup 15033 2 syms_11; AGroup 15171 2 syms_21; SGroup 2919 2 syms_22;
     SGroup 8466 2 syms_12; SGroup 7201 3 syms_13; SGroup 9515 4 syms_14; AGroup 15027 5 syms_15;
     SGroup 7990 14 syms_17]);
   (6243, 27, [AGroup 5 1 [sym_ppDirective]; AGroup 2787 1 [sym_kEnd]; AGroup 15011 1 [anon_sym_LBRACK];
     AGroup 15013 1 [anon_sym_LPAREN]; AGroup 15017 1 [anon_sym_POUND];
     AGroup 15029 1 [sym_kSpecialize]; AGroup 15035 1 [sym_kIf]; AGroup 15037 1 [sym_kInherited];
     AGroup 15039 1 [sym_kString]; SGroup 889 1 [sym_caseLabel];
     SGroup 4029 1 [aux_sym_caseLabel_repeat1]; SGroup 12695 1 [sym_caseCaseTr];
     SGroup 13480 1 [sym_range]; AGroup 3 2 syms_5; AGroup 15015 2 syms_6; AGroup 15019 2 syms_7;
     AGroup 15021 2 syms_8; AGroup 15023 2 syms_9; AGroup 15025 2 syms_10;
     AGroup 15033 2 syms_11; AGroup 15173 2 syms_21; SGroup 2919 2 syms_22;
     SGroup 8466 2 syms_12; SGroup 7201 3 syms_13; SGroup 9515 4 syms_14; AGroup 15027 5 syms_15;
     SGroup 7990 14 syms_17]);
   (6357, 27, [AGroup 5 1 [sym_ppDirective]; AGroup 1214 1 [sym_kEnd]; AGroup 15011 1 [anon_sym_LBRACK];
     AGroup 15013 1 [anon_sym_LPAREN]; AGroup 15017 1 [anon_sym_POUND];
     AGroup 15029 1 [sym_kSpecialize]; AGroup 15035 1 [sym_kIf]; AGroup 15037 1 [sym_kInherited];
     AGroup 15039 1 [sym_kString]; SGroup 889 1 [sym_caseLabel];
     SGroup 4029 1 [aux_sym_caseLabel_repeat1]; SGroup 12836 1 [sym_caseCaseTr];
     SGroup 13480 1 [sym_range]; AGroup 3 2 syms_5; AGroup 15015 2 syms_6; AGroup 15019 2 syms_7;
     AGroup 15021 2 syms_8; AGroup 15023 2 syms_9; AGroup 15025 2 syms_10;
     AGroup 15033 2 syms_11; AGroup 15175 2 syms_21; SGroup 2919 2 syms_22;
     SGroup 8466 2 syms_12; SGroup 7201 3 syms_13; SGroup 9515 4 syms_14; AGroup 15027 5 syms_15;
     SGroup 7990 14 syms_17]);
   (6471, 27, [AGroup 5 1 [sym_ppDirective]; AGroup 2091 1 [sym_kEnd]; AGroup 15011 1 [anon_sym_LBRACK];
     AGroup 15013 1 [anon_sym_LPAREN]; AGroup 15017 1 [anon_sym_POUND];
     AGroup 15029 1 [sym_kSpecialize]; AGroup 15035 1 [sym_kIf]; AGroup 15037 1 [sym_kInherited];
     AGroup 15039 1 [sym_kString]; SGroup 889 1 [sym_caseLabel];
     SGroup 4029 1 [aux_sym_caseLabel_repeat1]; SGroup 12959 1 [sym_caseCaseTr];
     SGroup 13480 1 [sym_range]; AGroup 3 2 syms_5; AGroup 15015 2 syms_6; AGroup 15019 2 syms_7;
     AGroup 15021 2 syms_8; AGroup 15023 2 syms_9; AGroup 15025 2 syms_10;
     AGroup 15033 2 syms_11; AGroup 15177 2 syms_21; SGroup 2919 2 syms_22;
     SGroup 8466 2 syms_12; SGroup 7201 3 syms_13; SGroup 9515 4 syms_14; AGroup 15027 5 syms_15;
     SGroup 7990 14 syms_17]);
   (6585, 21, [AGroup 5 1 [sym_ppDirective]; AGroup 14983 1 [anon_sym_LBRACK];
     AGroup 14985 1 [anon_sym_LPAREN]; AGroup 14989 1 [anon_sym_POUND];
     AGroup 15001 1 [sym_kSpecialize]; AGroup 15007 1 [sym_kInherited];
     AGroup 15009 1 [sym_kString]; AGroup 15187 1 [sym_kIf]; AGroup 3 2 syms_5;
     AGroup 14987 2 syms_6; AGroup 14991 2 syms_7; AGroup 14993 2 syms_8; AGroup 15003 2 syms_11;
     AGroup 15181 2 syms_9; AGroup 15183 2 syms_10; SGroup 7132 2 syms_12; SGroup 6248 3 syms_13;
     SGroup 7751 4 syms_14; AGroup 15185 5 syms_15; AGroup 15179 9 syms_20;
     SGroup 7210 14 syms_17]);
   (6687, 27, [AGroup 5 1 [sym_ppDirective]; AGroup 15011 1 [anon_sym_LBRACK];
     AGroup 15013 1 [anon_sym_LPAREN]; AGroup 15017 1 [anon_sym_POUND];
     AGroup 15029 1 [sym_kSpecialize]; AGroup 15035 1 [sym_kIf]; AGroup 15037 1 [sym_kInherited];
     AGroup 15039 1 [sym_kString]; AGroup 15191 1 [sym_kEnd]; SGroup 889 1 [sym_caseLabel];
     SGroup 4029 1 [aux_sym_caseLabel_repeat1]; SGroup 12731 1 [sym_caseCaseTr];
     SGroup 13480 1 [sym_range]; AGroup 3 2 syms_5; AGroup 15015 2 syms_6; AGroup 15019 2 syms_7;
     AGroup 15021 2 syms_8; AGroup 15023 2 syms_9; AGroup 15025 2 syms_10;
     AGroup 15033 2 syms_11; AGroup 15189 2 syms_21; SGroup 2820 2 syms_22;
     SGroup 8466 2 syms_12; SGroup 7201 3 syms_13; SGroup 9515 4 syms_14; AGroup 15027 5 syms_15;
     SGroup 7990 14 syms_17]);
   (6801, 27, [AGroup 5 1 [sym_ppDirective]; AGroup 2386 1 [sym_kEnd]; AGroup 15011 1 [anon_sym_LBRACK];
     AGroup 15013 1 [anon_sym_LPAREN]; AGroup 15017 1 [anon_sym_POUND];
     AGroup 15029 1 [sym_kSpecialize]; AGroup 15035 1 [sym_kIf]; AGroup 15037 1 [sym_kInherited];
     AGroup 15039 1 [sym_kString]; SGroup 889 1 [sym_caseLabel];
     SGroup 4029 1 [aux_sym_caseLabel_repeat1]; SGroup 12739 1 [sym_caseCaseTr];
     SGroup 13480 1 [sym_range]; AGroup 3 2 syms_5; AGroup 15015 2 syms_6; AGroup 15019 2 syms_7;
     AGroup 15021 2 syms_8; AGroup 15023 2 syms_9; AGroup 15025 2 syms_10;
     AGroup 15033 2 syms_11; AGroup 15193 2 syms_21; SGroup 2919 2 syms_22;
     SGroup 8466 2 syms_12; SGroup 7201 3 syms_13; SGroup 9515 4 syms_14; AGroup 15027 5 syms_15;
     SGroup 7990 14 syms_17]);
   (6915, 27, [AGroup 5 1 [sym_ppDirective]; AGroup 15011 1 [anon_sym_LBRACK];
     AGroup 15013 1 [anon_sym_LPAREN]; AGroup 15017 1 [anon_sym_POUND];
     AGroup 15029 1 [sym_kSpecialize]; AGroup 15035 1 [sym_kIf]; AGroup 15037 1 [sym_kInherited];
     AGroup 15039 1 [sym_kString]; AGroup 15197 1 [sym_kEnd]; SGroup 889 1 [sym_caseLabel];
     SGroup 4029 1 [aux_sym_caseLabel_repeat1]; SGroup 12718 1 [sym_caseCaseTr];
     SGroup 13480 1 [sym_range]; AGroup 3 2 syms_5; AGroup 15015 2 syms_6; AGroup 15019 2 syms_7;
     AGroup 15021 2 syms_8; AGroup 15023 2 syms_9; AGroup 15025 2 syms_10;
     AGroup 15033 2 syms_11; AGroup 15195 2 syms_21; SGroup 2823 2 syms_22;
     SGroup 8466 2 syms_12; SGroup 7201 3 syms_13; SGroup 9515 4 syms_14; AGroup 15027 5 syms_15;
     SGroup 7990 14 syms_17]);
   (7029, 27, [AGroup 5 1 [sym_ppDirective]; AGroup 15011 1 [anon_sym_LBRACK];
     AGroup 15013 1 [anon_sym_LPAREN]; AGroup 15017 1 [anon_sym_POUND];
     AGroup 15029 1 [sym_kSpecialize]; AGroup 15035 1 [sym_kIf]; AGroup 15037 1 [sym_kInherited];
     AGroup 15039 1 [sym_kString]; AGroup 15201 1 [sym_kEnd]; SGroup 889 1 [sym_caseLabel];
     SGroup 4029 1 [aux_sym_caseLabel_repeat1]; SGroup 12744 1 [sym_caseCaseTr];
     SGroup 13480 1 [sym_range]; AGroup 3 2 syms_5; AGroup 15015 2 syms_6; AGroup 15019 2 syms_7;
     AGroup 15021 2 syms_8; AGroup 15023 2 syms_9; AGroup 15025 2 syms_10;
     AGroup 15033 2 syms_11; AGroup 15199 2 syms_21; SGroup 2828 2 syms_22;
     SGroup 8466 2 syms_12; SGroup 7201 3 syms_13; SGroup 9515 4 syms_14; AGroup 15027 5 syms_15;
     SGroup 7990 14 syms_17]);
   (7143, 27, [AGroup 5 1 [sym_ppDirective]; AGroup 2805 1 [sym_kEnd]; AGroup 15011 1 [anon_sym_LBRACK];
     AGroup 15013 1 [anon_sym_LPAREN]; AGroup 15017 1 [anon_sym_POUND];
     AGroup 15029 1 [sym_kSpecialize]; AGroup 15035 1 [sym_kIf]; AGroup 15037 1 [sym_kInherited];
     AGroup 15039 1 [sym_kString]; SGroup 889 1 [sym_caseLabel];
     SGroup 4029 1 [aux_sym_caseLabel_repeat1]; SGroup 12720 1 [sym_caseCaseTr];
     SGroup 13480 1 [sym_range]; AGroup 3 2 syms_5; AGroup 15015 2 syms_6; AGroup 15019 2 syms_7;
     AGroup 15021 2 syms_8; AGroup 15023 2 syms_9; AGroup 15025 2 syms_10;
     AGroup 15033 2 syms_11; AGroup 15203 2 syms_21; SGroup 2919 2 syms_22;
     SGroup 8466 2 syms_12; SGroup 7201 3 syms_13; SGroup 9515 4 syms_14; AGroup 15027 5 syms_15;
     SGroup 7990 14 syms_17]);
   (7257, 27, [AGroup 5 1 [sym_ppDirective]; AGroup 15011 1 [anon_sym_LBRACK];
     AGroup 15013 1 [anon_sym_LPAREN]; AGroup 15017 1 [anon_sym_POUND];
     AGroup 15029 1 [sym_kSpecialize]; AGroup 15035 1 [sym_kIf]; AGroup 15037 1 [sym_kInherited];
     AGroup 15039 1 [sym_kString]; AGroup 15207 1 [sym_kEnd]; SGroup 889 1 [sym_caseLabel];
     SGroup 4029 1 [aux_sym_caseLabel_repeat1]; SGroup 12796 1 [sym_caseCaseTr];
     SGroup 13480 1 [sym_range]; AGroup 3 2 syms_5; AGroup 15015 2 syms_6; AGroup 15019 2 syms_7;
     AGroup 15021 2 syms_8; AGroup 15023 2 syms_9; AGroup 15025 2 syms_10;
     AGroup 15033 2 syms_11; AGroup 15205 2 syms_21; SGroup 2816 2 syms_22;
     SGroup 8466 2 syms_12; SGroup 7201 3 syms_13; SGroup 9515 4 syms_14; AGroup 15027 5 syms_15;
     SGroup 7990 14 syms_17]);
   (7371, 27, [AGroup 5 1 [sym_ppDirective]; AGroup 15011 1 [anon_sym_LBRACK];
     AGroup 15013 1 [anon_sym_LPAREN]; AGroup 15017 1 [anon_sym_POUND];
     AGroup 15029 1 [sym_kSpecialize]; AGroup 15035 1 [sym_kIf]; AGroup 15037 1 [sym_kInherited];
     AGroup 15039 1 [sym_kString]; AGroup 15211 1 [sym_kEnd]; SGroup 889 1 [sym_caseLabel];
     SGroup 4029 1 [aux_sym_caseLabel_repeat1]; SGroup 12730 1 [sym_caseCaseTr];
     SGroup 13480 1 [sym_range]; AGroup 3 2 syms_5; AGroup 15015 2 syms_6; AGroup 15019 2 syms_7;
     AGroup 15021 2 syms_8; AGroup 15023 2 syms_9; AGroup 15025 2 syms_10;
     AGroup 15033 2 syms_11; AGroup 15209 2 syms_21; SGroup 2827 2 syms_22;
     SGroup 8466 2 syms_12; SGroup 7201 3 syms_13; SGroup 9515 4 syms_14; AGroup 15027 5 syms_15;
     SGroup 7990 14 syms_17]);
   (7485, 27, [AGroup 5 1 [sym_ppDirective]; AGroup 15011 1 [anon_sym_LBRACK];
     AGroup 15013 1 [anon_sym_LPAREN]; AGroup 15017 1 [anon_sym_POUND];
     AGroup 15029 1 [sym_kSpecialize]; AGroup 15035 1 [sym_kIf]; AGroup 15037 1 [sym_kInherited];
     AGroup 15039 1 [sym_kString]; AGroup 15215 1 [sym_kEnd]; SGroup 889 1 [sym_caseLabel];
     SGroup 4029 1 [aux_sym_caseLabel_repeat1]; SGroup 12829 1 [sym_caseCaseTr];
     SGroup 13480 1 [sym_range]; AGroup 3 2 syms_5; AGroup 15015 2 syms_6; AGroup 15019 2 syms_7;
     AGroup 15021 2 syms_8; AGroup 15023 2 syms_9; AGroup 15025 2 syms_10;
     AGroup 15033 2 syms_11; AGroup 15213 2 syms_21; SGroup 2776 2 syms_22;
     SGroup 8466 2 syms_12; SGroup 7201 3 syms_13; SGroup 9515 4 syms_14; AGroup 15027 5 syms_15;
     SGroup 7990 14 syms_17]);
   (7599, 27, [AGroup 5 1 [sym_ppDirective]; AGroup 2823 1 [sym_kEnd]; AGroup 15011 1 [anon_sym_LBRACK];
     AGroup 15013 1 [anon_sym_LPAREN]; AGroup 15017 1 [anon_sym_POUND];
     AGroup 15029 1 [sym_kSpecialize]; AGroup 15035 1 [sym_kIf]; AGroup 15037 1 [sym_kInherited];
     AGroup 15039 1 [sym_kString]; SGroup 889 1 [sym_caseLabel];
     SGroup 4029 1 [aux_sym_caseLabel_repeat1]; SGroup 12732 1 [sym_caseCaseTr];
     SGroup 13480 1 [sym_range]; AGroup 3 2 syms_5; AGroup 15015 2 syms_6; AGroup 15019 2 syms_7;
     AGroup 15021 2 syms_8; AGroup 15023 2 syms_9; AGroup 15025 2 syms_10;
     AGroup 15033 2 syms_11; AGroup 15217 2 syms_21; SGroup 2919 2 syms_22;
     SGroup 8466 2 syms_12; SGroup 7201 3 syms_13; SGroup 9515 4 syms_14; AGroup 15027 5 syms_15;
     SGroup 7990 14 syms_17]);
   (7713, 27, [AGroup 5 1 [sym_ppDirective]; AGroup 1826 1 [sym_kEnd]; AGroup 15011 1 [anon_sym_LBRACK];
     AGroup 15013 1 [anon_sym_LPAREN]; AGroup 15017 1 [anon_sym_POUND];
     AGroup 15029 1 [sym_kSpecialize]; AGroup 15035 1 [sym_kIf]; AGroup 15037 1 [sym_kInherited];
     AGroup 15039 1 [sym_kString]; SGroup 889 1 [sym_caseLabel];
     SGroup 4029 1 [aux_sym_caseLabel_repeat1]; SGroup 12760 1 [sym_caseCaseTr];
     SGroup 13480 1 [sym_range]; AGroup 3 2 syms_5; AGroup 15015 2 syms_6; AGroup 15019 2 syms_7;
     AGroup 15021 2 syms_8; AGroup 15023 2 syms_9; AGroup 15025 2 syms_10;
     AGroup 15033 2 syms_11; AGroup 15219 2 syms_21; SGroup 2919 2 syms_22;
     SGroup 8466 2 syms_12; SGroup 7201 3 syms_13; SGroup 9515 4 syms_14; AGroup 15027 5 syms_15;
     SGroup 7990 14 syms_17]);
   (7827, 27, [AGroup 5 1 [sym_ppDirective]; AGroup 15011 1 [anon_sym_LBRACK];
     AGroup 15013 1 [anon_sym_LPAREN]; AGroup 15017 1 [anon_sym_POUND];
     AGroup 15029 1 [sym_kSpecialize]; AGroup 15035 1 [sym_kIf]; AGroup 15037 1 [sym_kInherited];
     AGroup 15039 1 [sym_kString]; AGroup 15223 1 [sym_kEnd]; SGroup 889 1 [sym_caseLabel];
     SGroup 4029 1 [aux_sym_caseLabel_repeat1]; SGroup 12986 1 [sym_caseCaseTr];
     SGroup 13480 1 [sym_range]; AGroup 3 2 syms_5; AGroup 15015 2 syms_6; AGroup 15019 2 syms_7;
     AGroup 15021 2 syms_8; AGroup 15023 2 syms_9; AGroup 15025 2 syms_10;
     AGroup 15033 2 syms_11; AGroup 15221 2 syms_21; SGroup 2835 2 syms_22;
     SGroup 8466 2 syms_12; SGroup 7201 3 syms_13; SGroup 9515 4 syms_14; AGroup 15027 5 syms_15;
     SGroup 7990 14 syms_17]);
   (7941, 21, [AGroup 5 1 [sym_ppDirective]; AGroup 14983 1 [anon_sym_LBRACK];
     AGroup 14985 1 [anon_sym_LPAREN]; AGroup 14989 1 [anon_sym_POUND];
     AGroup 15001 1 [sym_kSpecialize]; AGroup 15007 1 [sym_kInherited];
     AGroup 15009 1 [sym_kString]; AGroup 15187 1 [sym_kIf]; AGroup 3 2 syms_5;
     AGroup 14987 2 syms_6; AGroup 14991 2 syms_7; AGroup 14993 2 syms_8; AGroup 15003 2 syms_11;
     AGroup 15181 2 syms_9; AGroup 15183 2 syms_10; SGroup 7132 2 syms_12; SGroup 6248 3 syms_13;
     SGroup 7651 4 syms_14; AGroup 15185 5 syms_15; AGroup 14765 9 syms_20;
     SGroup 7210 14 syms_17]);
   (8043, 27, [AGroup 5 1 [sym_ppDirective]; AGroup 15011 1 [anon_sym_LBRACK];
     AGroup 15013 1 [anon_sym_LPAREN]; AGroup 15017 1 [anon_sym_POUND];
     AGroup 15029 1 [sym_kSpecialize]; AGroup 15035 1 [sym_kIf]; AGroup 15037 1 [sym_kInherited];
     AGroup 15039 1 [sym_kString]; AGroup 15227 1 [sym_kEnd]; SGroup 889 1 [sym_caseLabel];
     SGroup 4029 1 [aux_sym_caseLabel_repeat1]; SGroup 12874 1 [sym_caseCaseTr];
     SGroup 13480 1 [sym_range]; AGroup 3 2 syms_5; AGroup 15015 2 syms_6; AGroup 15019 2 syms_7;
     AGroup 15021 2 syms_8; AGroup 15023 2 syms_9; AGroup 15025 2 syms_10;
     AGroup 15033 2 syms_11; AGroup 15225 2 syms_21; SGroup 2839 2 syms_22;
     SGroup 8466 2 syms_12; SGroup 7201 3 syms_13; SGroup 9515 4 syms_14; AGroup 15027 5 syms_15;
     SGroup 7990 14 syms_17]);
   (8157, 27, [AGroup 5 1 [sym_ppDirective]; AGroup 15011 1 [anon_sym_LBRACK];
     AGroup 15013 1 [anon_sym_LPAREN]; AGroup 15017 1 [anon_sym_POUND];
     AGroup 15029 1 [sym_kSpecialize]; AGroup 15035 1 [sym_kIf]; AGroup 15037 1 [sym_kInherited];
     AGroup 15039 1 [sym_kString]; AGroup 15231 1 [sym_kEnd]; SGroup 889 1 [sym_caseLabel];
     SGroup 4029 1 [aux_sym_caseLabel_repeat1]; SGroup 12481 1 [sym_caseCaseTr];
     SGroup 13480 1 [sym_range]; AGroup 3 2 syms_5; AGroup 15015 2 syms_6; AGroup 15019 2 syms_7;
     AGroup 15021 2 syms_8; AGroup 15023 2 syms_9; AGroup 15025 2 syms_10;
     AGroup 15033 2 syms_11; AGroup 15229 2 syms_21; SGroup 2769 2 syms_22;
     SGroup 8466 2 syms_12; SGroup 7201 3 syms_13; SGroup 9515 4 syms_14; AGroup 15027 5 syms_15;
     SGroup 7990 14 syms_17]);
   (8271, 7, [AGroup 5 1 [sym_ppDirective]; AGroup 14741 1 [anon_sym_POUND]; AGroup 3 2 syms_5;
     AGroup 15237 2 syms_6; SGroup 2834 3 syms_13; AGroup 15235 4 syms_25;
     AGroup 15233 46 syms_26]);
   (8345, 7, [AGroup 5 1 [sym_ppDirective]; AGroup 15246 1 [anon_sym_POUND]; AGroup 3 2 syms_5;
     AGroup 15243 2 syms_6; SGroup 2834 3 syms_13; AGroup 15241 4 syms_25;
     AGroup 15239 46 syms_26]);
   (8419, 27, [AGroup 5 1 [sym_ppDirective]; AGroup 2433 1 [sym_kEnd]; AGroup 15011 1 [anon_sym_LBRACK];
     AGroup 15013 1 [anon_sym_LPAREN]; AGroup 15017 1 [anon_sym_POUND];
     AGroup 15029 1 [sym_kSpecialize]; AGroup 15035 1 [sym_kIf]; AGroup 15037 1 [sym_kInherited];
     AGroup 15039 1 [sym_kString]; SGroup 889 1 [sym_caseLabel];
     SGroup 4029 1 [aux_sym_caseLabel_repeat1]; SGroup 12762 1 [sym_caseCaseTr];
     SGroup 13480 1 [sym_range]; AGroup 3 2 syms_5; AGroup 15015 2 syms_6; AGroup 15019 2 syms_7;
     AGroup 15021 2 syms_8; AGroup 15023 2 syms_9; AGroup 15025 2 syms_10;
     AGroup 15033 2 syms_11; AGroup 15249 2 syms_21; SGroup 2919 2 syms_22;
     SGroup 8466 2 syms_12; SGroup 7201 3 syms_13; SGroup 9515 4 syms_14; AGroup 15027 5 syms_15;
     SGroup 7990 14 syms_17]);
   (8533, 27, [AGroup 5 1 [sym_ppDirective]; AGroup 1232 1 [sym_kEnd]; AGroup 15011 1 [anon_sym_LBRACK];
     AGroup 15013 1 [anon_sym_LPAREN]; AGroup 15017 1 [anon_sym_POUND];
     AGroup 15029 1 [sym_kSpecialize]; AGroup 15035 1 [sym_kIf]; AGroup 15037 1 [sym_kInherited];
     AGroup 15039 1 [sym_kString]; SGroup 889 1 [sym_caseLabel];
     SGroup 4029 1 [aux_sym_caseLabel_repeat1]; SGroup 12881 1 [sym_caseCaseTr];
     SGroup 13480 1 [sym_range]; AGroup 3 2 syms_5; AGroup 15015 2 syms_6; AGroup 15019 2 syms_7;
     AGroup 15021 2 syms_8; AGroup 15023 2 syms_9; AGroup 15025 2 syms_10;
     AGroup 15033 2 syms_11; AGroup 15251 2 syms_21; SGroup 2919 2 syms_22;
     SGroup 8466 2 syms_12; SGroup 7201 3 syms_13; SGroup 9515 4 syms_14; AGroup 15027 5 syms_15;
     SGroup 7990 14 syms_17]);
   (8647, 27, [AGroup 5 1 [sym_ppDirective]; AGroup 15011 1 [anon_sym_LBRACK];
     AGroup 15013 1 [anon_sym_LPAREN]; AGroup 15017 1 [anon_sym_POUND];
     AGroup 15029 1 [sym_kSpecialize]; AGroup 15035 1 [sym_kIf]; AGroup 15037 1 [sym_kInherited];
     AGroup 15039 1 [sym_kString]; AGroup 15255 1 [sym_kEnd]; SGroup 889 1 [sym_caseLabel];
     SGroup 4029 1 [aux_sym_caseLabel_repeat1]; SGroup 12791 1 [sym_caseCaseTr];
     SGroup 13480 1 [sym_range]; AGroup 3 2 syms_5; AGroup 15015 2 syms_6; AGroup 15019 2 syms_7;
     AGroup 15021 2 syms_8; AGroup 15023 2 syms_9; AGroup 15025 2 syms_10;
     AGroup 15033 2 syms_11; AGroup 15253 2 syms_21; SGroup 2840 2 syms_22;
     SGroup 8466 2 syms_12; SGroup 7201 3 syms_13; SGroup 9515 4 syms_14; AGroup 15027 5 syms_15;
     SGroup 7990 14 syms_17]);
   (8761, 21, [AGroup 5 1 [sym_ppDirective]; AGroup 14983 1 [anon_sym_LBRACK];
     AGroup 14985 1 [anon_sym_LPAREN]; AGroup 14989 1 [anon_sym_POUND];
     AGroup 15001 1 [sym_kSpecialize]; AGroup 15007 1 [sym_kInherited];
     AGroup 15009 1 [sym_kString]; AGroup 15187 1 [sym_kIf]; AGroup 3 2 syms_5;
     AGroup 14987 2 syms_6; AGroup 14991 2 syms_7; AGroup 14993 2 syms_8; AGroup 15003 2 syms_11;
     AGroup 15181 2 syms_9; AGroup 15183 2 syms_10; SGroup 7132 2 syms_12; SGroup 6248 3 syms_13;
     SGroup 7764 4 syms_14; AGroup 15185 5 syms_15; AGroup 15257 9 syms_20;
     SGroup 7210 14 syms_17]);
   (8863, 27, [AGroup 5 1 [sym_ppDirective]; AGroup 1467 1 [sym_kEnd]; AGroup 15011 1 [anon_sym_LBRACK];
     AGroup 15013 1 [anon_sym_LPAREN]; AGroup 15017 1 [anon_sym_POUND];
     AGroup 15029 1 [sym_kSpecialize]; AGroup 15035 1 [sym_kIf]; AGroup 15037 1 [sym_kInherited];
     AGroup 15039 1 [sym_kString]; SGroup 889 1 [sym_caseLabel];
     SGroup 4029 1 [aux_sym_caseLabel_repeat1]; SGroup 12945 1 [sym_caseCaseTr];
     SGroup 13480 1 [sym_range]; AGroup 3 2 syms_5; AGroup 15015 2 syms_6; AGroup 15019 2 syms_7;
     AGroup 15021 2 syms_8; AGroup 15023 2 syms_9; AGroup 15025 2 syms_10;
     AGroup 15033 2 syms_11; AGroup 15259 2 syms_21; SGroup 2919 2 syms_22;
     SGroup 8466 2 syms_12; SGroup 7201 3 syms_13; SGroup 9515 4 syms_14; AGroup 15027 5 syms_15;
     SGroup 7990 14 syms_17]);
   (8977, 27, [AGroup 5 1 [sym_ppDirective]; AGroup 2449 1 [sym_kEnd]; AGroup 15011 1 [anon_sym_LBRACK];
     AGroup 15013 1 [anon_sym_LPAREN]; AGroup 15017 1 [anon_sym_POUND];
     AGroup 15029 1 [sym_kSpecialize]; AGroup 15035 1 [sym_kIf]; AGroup 15037 1 [sym_kInherited];
     AGroup 15039 1 [sym_kString]; SGroup 889 1 [sym_caseLabel];
     SGroup 4029 1 [aux_sym_caseLabel_repeat1]; SGroup 12804 1 [sym_caseCaseTr];
     SGroup 13480 1 [sym_range]; AGroup 3 2 syms_5; AGroup 15015 2 syms_6; AGroup 15019 2 syms_7;
     AGroup 15021 2 syms_8; AGroup 15023 2 syms_9; AGroup 15025 2 syms_10;
     AGroup 15033 2 syms_11; AGroup 15261 2 syms_21; SGroup 2919 2 syms_22;
     SGroup 8466 2 syms_12; SGroup 7201 3 syms_13; SGroup 9515 4 syms_14; AGroup 15027 5 syms_15;
     SGroup 7990 14 syms_17]);
   (9091, 27, [AGroup 5 1 [sym_ppDirective]; AGroup 15011 1 [anon_sym_LBRACK];
     AGroup 15013 1 [anon_sym_LPAREN]; AGroup 15017 1 [anon_sym_POUND];
     AGroup 15029 1 [sym_kSpecialize]; AGroup 15035 1 [sym_kIf]; AGroup 15037 1 [sym_kInherited];
     AGroup 15039 1 [sym_kString]; AGroup 15265 1 [sym_kEnd]; SGroup 889 1 [sym_caseLabel];
     SGroup 4029 1 [aux_sym_caseLabel_repeat1]; SGroup 12788 1 [sym_caseCaseTr];
     SGroup 13480 1 [sym_range]; AGroup 3 2 syms_5; AGroup 15015 2 syms_6; AGroup 15019 2 syms_7;
     AGroup 15021 2 syms_8; AGroup 15023 2 syms_9; AGroup 15025 2 syms_10;
     AGroup 15033 2 syms_11; AGroup 15263 2 syms_21; SGroup 2804 2 syms_22;
     SGroup 8466 2 syms_12; SGroup 7201 3 syms_13; SGroup 9515 4 syms_14; AGroup 15027 5 syms_15;
     SGroup 7990 14 syms_17]);
   (9205, 27, [AGroup 5 1 [sym_ppDirective]; AGroup 15011 1 [anon_sym_LBRACK];
     AGroup 15013 1 [anon_sym_LPAREN]; AGroup 15017 1 [anon_sym_POUND];
     AGroup 15029 1 [sym_kSpecialize]; AGroup 15035 1 [sym_kIf]; AGroup 15037 1 [sym_kInherited];
     AGroup 15039 1 [sym_kString]; AGroup 15269 1 [sym_kEnd]; SGroup 889 1 [sym_caseLabel];
     SGroup 4029 1 [aux_sym_caseLabel_repeat1]; SGroup 12623 1 [sym_caseCaseTr];
     SGroup 13480 1 [sym_range]; AGroup 3 2 syms_5; AGroup 15015 2 syms_6; AGroup 15019 2 syms_7;
     AGroup 15021 2 syms_8; AGroup 15023 2 syms_9; AGroup 15025 2 syms_10;
     AGroup 15033 2 syms_11; AGroup 15267 2 syms_21; SGroup 2781 2 syms_22;
     SGroup 8466 2 syms_12; SGroup 7201 3 syms_13; SGroup 9515 4 syms_14; AGroup 15027 5 syms_15;
     SGroup 7990 14 syms_17]);
   (9319, 27, [AGroup 5 1 [sym_ppDirective]; AGroup 15011 1 [anon_sym_LBRACK];
     AGroup 15013 1 [anon_sym_LPAREN]; AGroup 15017 1 [anon_sym_POUND];
     AGroup 15029 1 [sym_kSpecialize]; AGroup 15035 1 [sym_kIf]; AGroup 15037 1 [sym_kInherited];
     AGroup 15039 1 [sym_kString]; AGroup 15273 1 [sym_kEnd]; SGroup 889 1 [sym_caseLabel];
     SGroup 4029 1 [aux_sym_caseLabel_repeat1]; SGroup 12461 1 [sym_caseCaseTr];
     SGroup 13480 1 [sym_range]; AGroup 3 2 syms_5; AGroup 15015 2 syms_6; AGroup 15019 2 syms_7;
     AGroup 15021 2 syms_8; AGroup 15023 2 syms_9; AGroup 15025 2 syms_10;
     AGroup 15033 2 syms_11; AGroup 15271 2 syms_21; SGroup 2846 2 syms_22;
     SGroup 8466 2 syms_12; SGroup 7201 3 syms_13; SGroup 9515 4 syms_14; AGroup 15027 5 syms_15;
     SGroup 7990 14 syms_17]);
   (9433, 27, [AGroup 5 1 [sym_ppDirective]; AGroup 1272 1 [sym_kEnd]; AGroup 15011 1 [anon_sym_LBRACK];
     AGroup 15013 1 [anon_sym_LPAREN]; AGroup 15017 1 [anon_sym_POUND];
     AGroup 15029 1 [sym_kSpecialize]; AGroup 15035 1 [sym_kIf]; AGroup 15037 1 [sym_kInherited];
     AGroup 15039 1 [sym_kString]; SGroup 889 1 [sym_caseLabel];
     SGroup 4029 1 [aux_sym_caseLabel_repeat1]; SGroup 12572 1 [sym_caseCaseTr];
     SGroup 13480 1 [sym_range]; AGroup 3 2 syms_5; AGroup 15015 2 syms_6; AGroup 15019 2 syms_7;
     AGroup 15021 2 syms_8; AGroup 15023 2 syms_9; AGroup 15025 2 syms_10;
     AGroup 15033 2 syms_11; AGroup 15275 2 syms_21; SGroup 2919 2 syms_22;
     SGroup 8466 2 syms_12; SGroup 7201 3 syms_13; SGroup 9515 4 syms_14; AGroup 15027 5 syms_15;
     SGroup 7990 14 syms_17]);
   (9547, 27, [AGroup 5 1 [sym_ppDirective]; AGroup 1244 1 [sym_kEnd]; AGroup 15011 1 [anon_sym_LBRACK];
     AGroup 15013 1 [anon_sym_LPAREN]; AGroup 15017 1 [anon_sym_POUND];
     AGroup 15029 1 [sym_kSpecialize]; AGroup 15035 1 [sym_kIf]; AGroup 15037 1 [sym_kInherited];
     AGroup 15039 1 [sym_kString]; SGroup 889 1 [sym_caseLabel];
     SGroup 4029 1 [aux_sym_caseLabel_repeat1]; SGroup 12889 1 [sym_caseCaseTr];
     SGroup 13480 1 [sym_range]; AGroup 3 2 syms_5; AGroup 15015 2 syms_6; AGroup 15019 2 syms_7;
     AGroup 15021 2 syms_8; AGroup 15023 2 syms_9; AGroup 15025 2 syms_10;
     AGroup 15033 2 syms_11; AGroup 15277 2 syms_21; SGroup 2919 2 syms_22;
     SGroup 8466 2 syms_12; SGroup 7201 3 syms_13; SGroup 9515 4 syms_14; AGroup 15027 5 syms_15;
     SGroup 7990 14 syms_17]);
   (9661, 27, [AGroup 5 1 [sym_ppDirective]; AGroup 2138 1 [sym_kEnd]; AGroup 15011 1 [anon_sym_LBRACK];
     AGroup 15013 1 [anon_sym_LPAREN]; AGroup 15017 1 [anon_sym_POUND];
     AGroup 15029 1 [sym_kSpecialize]; AGroup 15035 1 [sym_kIf]; AGroup 15037 1 [sym_kInherited];
     AGroup 15039 1 [sym_kString]; SGroup 889 1 [sym_caseLabel];
     SGroup 4029 1 [aux_sym_caseLabel_repeat1]; SGroup 12469 1 [sym_caseCaseTr];
     SGroup 13480 1 [sym_range]; AGroup 3 2 syms_5; AGroup 15015 2 syms_6; AGroup 15019 2 syms_7;
     AGroup 15021 2 syms_8; AGroup 15023 2 syms_9; AGroup 15025 2 syms_10;
     AGroup 15033 2 syms_11; AGroup 15279 2 syms_21; SGroup 2919 2 syms_22;
     SGroup 8466 2 syms_12; SGroup 7201 3 syms_13; SGroup 9515 4 syms_14; AGroup 15027 5 syms_15;
     SGroup 7990 14 syms_17]);
   (9775, 21, [AGroup 5 1 [sym_ppDirective]; AGroup 14983 1 [anon_sym_LBRACK];
     AGroup 14985 1 [anon_sym_LPAREN]; AGroup 14989 1 [anon_sym_POUND];
     AGroup 15001 1 [sym_kSpecialize]; AGroup 15007 1 [sym_kInherited];
     AGroup 15009 1 [sym_kString]; AGroup 15187 1 [sym_kIf]; AGroup 3 2 syms_5;
     AGroup 14987 2 syms_6; AGroup 14991 2 syms_7; AGroup 14993 2 syms_8; AGroup 15003 2 syms_11;
     AGroup 15181 2 syms_9; AGroup 15183 2 syms_10; SGroup 7132 2 syms_12; SGroup 6248 3 syms_13;
     SGroup 7625 4 syms_14; AGroup 15185 5 syms_15; AGroup 14747 9 syms_20;
     SGroup 7210 14 syms_17]);
   (9877, 27, [AGroup 5 1 [sym_ppDirective]; AGroup 15011 1 [anon_sym_LBRACK];
     AGroup 15013 1 [anon_sym_LPAREN]; AGroup 15017 1 [anon_sym_POUND];
     AGroup 15029 1 [sym_kSpecialize]; AGroup 15035 1 [sym_kIf]; AGroup 15037 1 [sym_kInherited];
     AGroup 15039 1 [sym_kString]; AGroup 15283 1 [sym_kEnd]; SGroup 889 1 [sym_caseLabel];
     SGroup 4029 1 [aux_sym_caseLabel_repeat1]; SGroup 12685 1 [sym_caseCaseTr];
     SGroup 13480 1 [sym_range]; AGroup 3 2 syms_5; AGroup 15015 2 syms_6; AGroup 15019 2 syms_7;
     AGroup 15021 2 syms_8; AGroup 15023 2 syms_9; AGroup 15025 2 syms_10;
     AGroup 15033 2 syms_11; AGroup 15281 2 syms_21; SGroup 2787 2 syms_22;
     SGroup 8466 2 syms_12; SGroup 7201 3 syms_13; SGroup 9515 4 syms_14; AGroup 15027 5 syms_15;
     SGroup 7990 14 syms_17]);
   (9991, 27, [AGroup 5 1 [sym_ppDirective]; AGroup 15011 1 [anon_sym_LBRACK];
     AGroup 15013 1 [anon_sym_LPAREN]; AGroup 15017 1 [anon_sym_POUND];
     AGroup 15029 1 [sym_kSpecialize]; AGroup 15035 1 [sym_kIf]; AGroup 15037 1 [sym_kInherited];
     AGroup 15039 1 [sym_kString]; AGroup 15287 1 [sym_kEnd]; SGroup 889 1 [sym_caseLabel];
     SGroup 4029 1 [aux_sym_caseLabel_repeat1]; SGroup 12693 1 [sym_caseCaseTr];
     SGroup 13480 1 [sym_range]; AGroup 3 2 syms_5; AGroup 15015 2 syms_6; AGroup 15019 2 syms_7;
     AGroup 15021 2 syms_8; AGroup 15023 2 syms_9; AGroup 15025 2 syms_10;
     AGroup 15033 2 syms_11; AGroup 15285 2 syms_21; SGroup 2790 2 syms_22;
     SGroup 8466 2 syms_12; SGroup 7201 3 syms_13; SGroup 9515 4 syms_14; AGroup 15027 5 syms_15;
     SGroup 7990 14 syms_17]);
   (10105, 27, [AGroup 5 1 [sym_ppDirective]; AGroup 15011 1 [anon_sym_LBRACK];
     AGroup 15013 1 [anon_sym_LPAREN]; AGroup 15017 1 [anon_sym_POUND];
     AGroup 15029 1 [sym_kSpecialize]; AGroup 15035 1 [sym_kIf]; AGroup 15037 1 [sym_kInherited];
     AGroup 15039 1 [sym_kString]; AGroup 15291 1 [sym_kEnd]; SGroup 889 1 [sym_caseLabel];
     SGroup 4029 1 [aux_sym_caseLabel_repeat1]; SGroup 12951 1 [sym_caseCaseTr];
     SGroup 13480 1 [sym_range]; AGroup 3 2 syms_5; AGroup 15015 2 syms_6; AGroup 15019 2 syms_7;
     AGroup 15021 2 syms_8; AGroup 15023 2 syms_9; AGroup 15025 2 syms_10;
     AGroup 15033 2 syms_11; AGroup 15289 2 syms_21; SGroup 2817 2 syms_22;
     SGroup 8466 2 syms_12; SGroup 7201 3 syms_13; SGroup 9515 4 syms_14; AGroup 15027 5 syms_15;
     SGroup 7990 14 syms_17]);
   (10219, 4, [AGroup 5 1 [sym_ppDirective]; AGroup 3 2 syms_5; AGroup 15295 4 syms_25;
     AGroup 15293 51 syms_27]);
   (10286, 21, [AGroup 5 1 [sym_ppDirective]; AGroup 673 1 [anon_sym_LBRACK];
     AGroup 675 1 [anon_sym_LPAREN]; AGroup 679 1 [anon_sym_POUND];
     AGroup 695 1 [sym_kSpecialize]; AGroup 717 1 [sym_kInherited]; AGroup 723 1 [sym_kString];
     AGroup 15297 1 [sym_kIf]; AGroup 3 2 syms_5; AGroup 677 2 syms_6; AGroup 681 2 syms_7;
     AGroup 683 2 syms_8; AGroup 685 2 syms_9; AGroup 687 2 syms_10; AGroup 711 2 syms_11;
     SGroup 7426 2 syms_12; SGroup 6541 3 syms_13; SGroup 7836 4 syms_14; AGroup 689 5 syms_15;
     AGroup 14747 8 syms_28; SGroup 7259 14 syms_17]);
   (10387, 34, [AGroup 5 1 [sym_ppDirective]; AGroup 14853 1 [anon_sym_POUND];
     AGroup 14859 1 [aux_sym_ppUsesBlock_token1]; AGroup 15299 1 [anon_sym_LPAREN];
     AGroup 15301 1 [sym_kHat]; AGroup 15303 1 [sym_ppFragmentExpr];
     AGroup 15305 1 [sym_identifier]; AGroup 15307 1 [sym_kSpecialize];
     AGroup 15309 1 [sym_kReference]; AGroup 15311 1 [sym_kArray]; AGroup 15313 1 [sym_kClass];
     AGroup 15315 1 [sym_kConst]; AGroup 15317 1 [sym_kFile]; AGroup 15321 1 [sym_kPacked];
     AGroup 15323 1 [sym_kRecord]; AGroup 15325 1 [sym_kSet]; AGroup 15327 1 [sym_kString];
     SGroup 3815 1 [sym__ppIf]; SGroup 10605 1 [sym__subRangeUnary];
     SGroup 10614 1 [sym__subRangeBinary]; SGroup 10620 1 [sym__subRangeCall];
     SGroup 13892 1 [sym_arrayOfConstTyperef]; AGroup 3 2 syms_5; AGroup 14851 2 syms_6;
     AGroup 14855 2 syms_7; AGroup 14857 2 syms_8; AGroup 14861 2 syms_9; AGroup 15319 2 syms_11;
     SGroup 10647 2 syms_12; SGroup 13078 2 syms_29; SGroup 10482 3 syms_13;
     SGroup 11297 3 syms_30; SGroup 10560 4 syms_31; SGroup 13955 10 syms_32]);
   (10514, 19, [AGroup 5 1 [sym_ppDirective]; AGroup 15329 1 [aux_sym_ppUsesBlock_token1];
     AGroup 15331 1 [aux_sym_ppUsesBlock_token2]; AGroup 15333 1 [aux_sym_ppUsesBlock_token3];
     AGroup 15337 1 [sym_kDispId]; AGroup 15339 1 [sym_kPublic]; AGroup 15341 1 [sym_kMessage];
     AGroup 15343 1 [sym_kDeprecated]; AGroup 15345 1 [sym_kExport]; AGroup 15347 1 [sym_kAlias];
     SGroup 2213 1 [sym__ppEndIf]; SGroup 2857 1 [sym__ppIf];
     SGroup 2858 1 [aux_sym__procAttributesPp_repeat1]; SGroup 3321 1 [sym__ppElse];
     SGroup 4086 1 [sym__procAttributesPp]; SGroup 11588 1 [sym_procAttribute];
     SGroup 12007 1 [aux_sym__procAttributesPp_repeat2]; AGroup 3 2 syms_5;
     AGroup 15335 39 syms_33]);
   (10611, 21, [AGroup 5 1 [sym_ppDirective]; AGroup 673 1 [anon_sym_LBRACK];
     AGroup 675 1 [anon_sym_LPAREN]; AGroup 679 1 [anon_sym_POUND];
     AGroup 695 1 [sym_kSpecialize]; AGroup 717 1 [sym_kInherited]; AGroup 723 1 [sym_kString];
     AGroup 15297 1 [sym_kIf]; AGroup 3 2 syms_5; AGroup 677 2 syms_6; AGroup 681 2 syms_7;
     AGroup 683 2 syms_8; AGroup 685 2 syms_9; AGroup 687 2 syms_10; AGroup 711 2 syms_11;
     SGroup 7426 2 syms_12; SGroup 6541 3 syms_13; SGroup 7837 4 syms_14; AGroup 689 5 syms_15;
     AGroup 14765 8 syms_28; SGroup 7259 14 syms_17]);
   (10712, 19, [AGroup 5 1 [sym_ppDirective]; AGroup 15329 1 [aux_sym_ppUsesBlock_token1];
     AGroup 15331 1 [aux_sym_ppUsesBlock_token2]; AGroup 15337 1 [sym_kDispId];
     AGroup 15339 1 [sym_kPublic]; AGroup 15341 1 [sym_kMessage];
     AGroup 15343 1 [sym_kDeprecated]; AGroup 15345 1 [sym_kExport]; AGroup 15347 1 [sym_kAlias];
     AGroup 15349 1 [aux_sym_ppUsesBlock_token3]; SGroup 2647 1 [sym__ppEndIf];
     SGroup 2857 1 [sym__ppIf]; SGroup 2895 1 [aux_sym__procAttributesPp_repeat1];
     SGroup 3321 1 [sym__ppElse]; SGroup 4086 1 [sym__procAttributesPp];
     SGroup 11645 1 [sym_procAttribute]; SGroup 12044 1 [aux_sym__procAttributesPp_repeat2];
     AGroup 3 2 syms_5; AGroup 15335 39 syms_33]);
   (10809, 19, [AGroup 5 1 [sym_ppDirective]; AGroup 11641 1 [sym_kDispId]; AGroup 11643 1 [sym_kPublic];
     AGroup 11645 1 [sym_kMessage]; AGroup 11647 1 [sym_kDeprecated];
     AGroup 11649 1 [sym_kExport]; AGroup 11651 1 [sym_kAlias];
     AGroup 15329 1 [aux_sym_ppUsesBlock_token1]; AGroup 15331 1 [aux_sym_ppUsesBlock_token2];
     AGroup 15351 1 [aux_sym_ppUsesBlock_token3]; SGroup 2857 1 [sym__ppIf];
     SGroup 2864 1 [aux_sym__procAttributesPp_repeat1]; SGroup 3321 1 [sym__ppElse];
     SGroup 3885 1 [sym__ppEndIf]; SGroup 4086 1 [sym__procAttributesPp];
     SGroup 11688 1 [aux_sym__procAttributesPp_repeat2]; SGroup 14440 1 [sym_procAttribute];
     AGroup 3 2 syms_5; AGroup 1016 39 syms_33]);
   (10906, 19, [AGroup 5 1 [sym_ppDirective]; AGroup 11641 1 [sym_kDispId]; AGroup 11643 1 [sym_kPublic];
     AGroup 11645 1 [sym_kMessage]; AGroup 11647 1 [sym_kDeprecated];
     AGroup 11649 1 [sym_kExport]; AGroup 11651 1 [sym_kAlias];
     AGroup 15329 1 [aux_sym_ppUsesBlock_token1]; AGroup 15331 1 [aux_sym_ppUsesBlock_token2];
     AGroup 15333 1 [aux_sym_ppUsesBlock_token3]; SGroup 2234 1 [sym__ppEndIf];
     SGroup 2857 1 [sym__ppIf]; SGroup 3321 1 [sym__ppElse];
     SGroup 3341 1 [aux_sym__procAttributesPp_repeat1]; SGroup 4086 1 [sym__procAttributesPp];
     SGroup 12017 1 [aux_sym__procAttributesPp_repeat2]; SGroup 14440 1 [sym_procAttribute];
     AGroup 3 2 syms_5; AGroup 1016 39 syms_33])
  ].

(** States 2859 to 2958. *)
Definition small_runs_2859 : list small_run :=
  [
   (11003, 4, [AGroup 5 1 [sym_ppDirective]; AGroup 3 2 syms_5; AGroup 15355 7 syms_34;
     AGroup 15353 48 syms_35]);
   (11070, 34, [AGroup 5 1 [sym_ppDirective]; AGroup 14853 1 [anon_sym_POUND];
     AGroup 14859 1 [aux_sym_ppUsesBlock_token1]; AGroup 15357 1 [anon_sym_LPAREN];
     AGroup 15359 1 [sym_kHat]; AGroup 15361 1 [sym_ppFragmentExpr];
     AGroup 15363 1 [sym_identifier]; AGroup 15365 1 [sym_kSpecialize];
     AGroup 15367 1 [sym_kReference]; AGroup 15369 1 [sym_kArray]; AGroup 15371 1 [sym_kClass];
     AGroup 15373 1 [sym_kConst]; AGroup 15375 1 [sym_kFile]; AGroup 15379 1 [sym_kPacked];
     AGroup 15381 1 [sym_kRecord]; AGroup 15383 1 [sym_kSet]; AGroup 15385 1 [sym_kString];
     SGroup 3813 1 [sym__ppIf]; SGroup 10605 1 [sym__subRangeUnary];
     SGroup 10614 1 [sym__subRangeBinary]; SGroup 10620 1 [sym__subRangeCall];
     SGroup 11206 1 [sym_arrayOfConstTyperef]; AGroup 3 2 syms_5; AGroup 14851 2 syms_6;
     AGroup 14855 2 syms_7; AGroup 14857 2 syms_8; AGroup 14861 2 syms_9; AGroup 15377 2 syms_11;
     SGroup 10647 2 syms_12; SGroup 11160 2 syms_29; SGroup 10482 3 syms_13;
     SGroup 11272 3 syms_30; SGroup 10358 4 syms_31; SGroup 11091 10 syms_32]);
   (11197, 34, [AGroup 5 1 [sym_ppDirective]; AGroup 14849 1 [anon_sym_LPAREN];
     AGroup 14853 1 [anon_sym_POUND]; AGroup 14859 1 [aux_sym_ppUsesBlock_token1];
     AGroup 14863 1 [sym_kHat]; AGroup 14865 1 [sym_ppFragmentExpr];
     AGroup 14867 1 [sym_identifier]; AGroup 14871 1 [sym_kSpecialize];
     AGroup 14873 1 [sym_kReference]; AGroup 14875 1 [sym_kArray]; AGroup 14881 1 [sym_kFile];
     AGroup 14889 1 [sym_kSet]; AGroup 14891 1 [sym_kString]; AGroup 15387 1 [sym_kClass];
     AGroup 15389 1 [sym_kConst]; AGroup 15391 1 [sym_kPacked]; AGroup 15393 1 [sym_kRecord];
     SGroup 3870 1 [sym__ppIf]; SGroup 10605 1 [sym__subRangeUnary];
     SGroup 10614 1 [sym__subRangeBinary]; SGroup 10620 1 [sym__subRangeCall];
     SGroup 12378 1 [sym_arrayOfConstTyperef]; AGroup 3 2 syms_5; AGroup 14851 2 syms_6;
     AGroup 14855 2 syms_7; AGroup 14857 2 syms_8; AGroup 14861 2 syms_9; AGroup 14883 2 syms_11;
     SGroup 10647 2 syms_12; SGroup 12148 2 syms_29; SGroup 10482 3 syms_13;
     SGroup 11313 3 syms_30; SGroup 10505 4 syms_31; SGroup 12384 10 syms_32]);
   (11324, 19, [AGroup 5 1 [sym_ppDirective]; AGroup 15329 1 [aux_sym_ppUsesBlock_token1];
     AGroup 15331 1 [aux_sym_ppUsesBlock_token2]; AGroup 15337 1 [sym_kDispId];
     AGroup 15339 1 [sym_kPublic]; AGroup 15341 1 [sym_kMessage];
     AGroup 15343 1 [sym_kDeprecated]; AGroup 15345 1 [sym_kExport]; AGroup 15347 1 [sym_kAlias];
     AGroup 15351 1 [aux_sym_ppUsesBlock_token3]; SGroup 2857 1 [sym__ppIf];
     SGroup 2864 1 [aux_sym__procAttributesPp_repeat1]; SGroup 3321 1 [sym__ppElse];
     SGroup 3885 1 [sym__ppEndIf]; SGroup 4086 1 [sym__procAttributesPp];
     SGroup 11571 1 [sym_procAttribute]; SGroup 11688 1 [aux_sym__procAttributesPp_repeat2];
     AGroup 3 2 syms_5; AGroup 15335 39 syms_33]);
   (11421, 34, [AGroup 5 1 [sym_ppDirective]; AGroup 14853 1 [anon_sym_POUND];
     AGroup 14859 1 [aux_sym_ppUsesBlock_token1]; AGroup 15299 1 [anon_sym_LPAREN];
     AGroup 15301 1 [sym_kHat]; AGroup 15303 1 [sym_ppFragmentExpr];
     AGroup 15305 1 [sym_identifier]; AGroup 15307 1 [sym_kSpecialize];
     AGroup 15309 1 [sym_kReference]; AGroup 15311 1 [sym_kArray]; AGroup 15313 1 [sym_kClass];
     AGroup 15315 1 [sym_kConst]; AGroup 15317 1 [sym_kFile]; AGroup 15321 1 [sym_kPacked];
     AGroup 15323 1 [sym_kRecord]; AGroup 15325 1 [sym_kSet]; AGroup 15327 1 [sym_kString];
     SGroup 3815 1 [sym__ppIf]; SGroup 10605 1 [sym__subRangeUnary];
     SGroup 10614 1 [sym__subRangeBinary]; SGroup 10620 1 [sym__subRangeCall];
     SGroup 13892 1 [sym_arrayOfConstTyperef]; AGroup 3 2 syms_5; AGroup 14851 2 syms_6;
     AGroup 14855 2 syms_7; AGroup 14857 2 syms_8; AGroup 14861 2 syms_9; AGroup 15319 2 syms_11;
     SGroup 10647 2 syms_12; SGroup 13663 2 syms_29; SGroup 10482 3 syms_13;
     SGroup 11297 3 syms_30; SGroup 10560 4 syms_31; SGroup 13955 10 syms_32]);
   (11548, 19, [AGroup 5 1 [sym_ppDirective]; AGroup 11641 1 [sym_kDispId]; AGroup 11643 1 [sym_kPublic];
     AGroup 11645 1 [sym_kMessage]; AGroup 11647 1 [sym_kDeprecated];
     AGroup 11649 1 [sym_kExport]; AGroup 11651 1 [sym_kAlias];
     AGroup 15329 1 [aux_sym_ppUsesBlock_token1]; AGroup 15331 1 [aux_sym_ppUsesBlock_token2];
     AGroup 15351 1 [aux_sym_ppUsesBlock_token3]; SGroup 2857 1 [sym__ppIf];
     SGroup 3321 1 [sym__ppElse]; SGroup 3341 1 [aux_sym__procAttributesPp_repeat1];
     SGroup 3876 1 [sym__ppEndIf]; SGroup 4086 1 [sym__procAttributesPp];
     SGroup 11716 1 [aux_sym__procAttributesPp_repeat2]; SGroup 14440 1 [sym_procAttribute];
     AGroup 3 2 syms_5; AGroup 1016 39 syms_33]);
   (11645, 19, [AGroup 5 1 [sym_ppDirective]; AGroup 11641 1 [sym_kDispId]; AGroup 11643 1 [sym_kPublic];
     AGroup 11645 1 [sym_kMessage]; AGroup 11647 1 [sym_kDeprecated];
     AGroup 11649 1 [sym_kExport]; AGroup 11651 1 [sym_kAlias];
     AGroup 15329 1 [aux_sym_ppUsesBlock_token1]; AGroup 15331 1 [aux_sym_ppUsesBlock_token2];
     AGroup 15395 1 [aux_sym_ppUsesBlock_token3]; SGroup 2717 1 [sym__ppEndIf];
     SGroup 2857 1 [sym__ppIf]; SGroup 3321 1 [sym__ppElse];
     SGroup 3341 1 [aux_sym__procAttributesPp_repeat1]; SGroup 4086 1 [sym__procAttributesPp];
     SGroup 11941 1 [aux_sym__procAttributesPp_repeat2]; SGroup 14440 1 [sym_procAttribute];
     AGroup 3 2 syms_5; AGroup 1016 39 syms_33]);
   (11742, 19, [AGroup 5 1 [sym_ppDirective]; AGroup 11641 1 [sym_kDispId]; AGroup 11643 1 [sym_kPublic];
     AGroup 11645 1 [sym_kMessage]; AGroup 11647 1 [sym_kDeprecated];
     AGroup 11649 1 [sym_kExport]; AGroup 11651 1 [sym_kAlias];
     AGroup 15329 1 [aux_sym_ppUsesBlock_token1]; AGroup 15331 1 [aux_sym_ppUsesBlock_token2];
     AGroup 15397 1 [aux_sym_ppUsesBlock_token3]; SGroup 984 1 [sym__ppEndIf];
     SGroup 2857 1 [sym__ppIf]; SGroup 3321 1 [sym__ppElse];
     SGroup 3341 1 [aux_sym__procAttributesPp_repeat1]; SGroup 4086 1 [sym__procAttributesPp];
     SGroup 11908 1 [aux_sym__procAttributesPp_repeat2]; SGroup 14440 1 [sym_procAttribute];
     AGroup 3 2 syms_5; AGroup 1016 39 syms_33]);
   (11839, 34, [AGroup 5 1 [sym_ppDirective]; AGroup 14853 1 [anon_sym_POUND];
     AGroup 14859 1 [aux_sym_ppUsesBlock_token1]; AGroup 15357 1 [anon_sym_LPAREN];
     AGroup 15359 1 [sym_kHat]; AGroup 15361 1 [sym_ppFragmentExpr];
     AGroup 15363 1 [sym_identifier]; AGroup 15365 1 [sym_kSpecialize];
     AGroup 15367 1 [sym_kReference]; AGroup 15369 1 [sym_kArray]; AGroup 15371 1 [sym_kClass];
     AGroup 15373 1 [sym_kConst]; AGroup 15375 1 [sym_kFile]; AGroup 15379 1 [sym_kPacked];
     AGroup 15381 1 [sym_kRecord]; AGroup 15383 1 [sym_kSet]; AGroup 15385 1 [sym_kString];
     SGroup 3813 1 [sym__ppIf]; SGroup 10605 1 [sym__subRangeUnary];
     SGroup 10614 1 [sym__subRangeBinary]; SGroup 10620 1 [sym__subRangeCall];
     SGroup 11206 1 [sym_arrayOfConstTyperef]; AGroup 3 2 syms_5; AGroup 14851 2 syms_6;
     AGroup 14855 2 syms_7; AGroup 14857 2 syms_8; AGroup 14861 2 syms_9; AGroup 15377 2 syms_11;
     SGroup 10647 2 syms_12; SGroup 11154 2 syms_29; SGroup 10482 3 syms_13;
     SGroup 11272 3 syms_30; SGroup 10358 4 syms_31; SGroup 11091 10 syms_32]);
   (11966, 34, [AGroup 5 1 [sym_ppDirective]; AGroup 14853 1 [anon_sym_POUND];
     AGroup 14859 1 [aux_sym_ppUsesBlock_token1]; AGroup 15299 1 [anon_sym_LPAREN];
     AGroup 15301 1 [sym_kHat]; AGroup 15303 1 [sym_ppFragmentExpr];
     AGroup 15305 1 [sym_identifier]; AGroup 15307 1 [sym_kSpecialize];
     AGroup 15309 1 [sym_kReference]; AGroup 15311 1 [sym_kArray]; AGroup 15313 1 [sym_kClass];
     AGroup 15315 1 [sym_kConst]; AGroup 15317 1 [sym_kFile]; AGroup 15321 1 [sym_kPacked];
     AGroup 15323 1 [sym_kRecord]; AGroup 15325 1 [sym_kSet]; AGroup 15327 1 [sym_kString];
     SGroup 3815 1 [sym__ppIf]; SGroup 10605 1 [sym__subRangeUnary];
     SGroup 10614 1 [sym__subRangeBinary]; SGroup 10620 1 [sym__subRangeCall];
     SGroup 13892 1 [sym_arrayOfConstTyperef]; AGroup 3 2 syms_5; AGroup 14851 2 syms_6;
     AGroup 14855 2 syms_7; AGroup 14857 2 syms_8; AGroup 14861 2 syms_9; AGroup 15319 2 syms_11;
     SGroup 10647 2 syms_12; SGroup 13143 2 syms_29; SGroup 10482 3 syms_13;
     SGroup 11297 3 syms_30; SGroup 10560 4 syms_31; SGroup 13955 10 syms_32]);
   (12093, 5, [AGroup 5 1 [sym_ppDirective]; AGroup 3 2 syms_5; AGroup 15401 7 syms_34;
     AGroup 15403 18 syms_36; AGroup 15399 30 syms_37]);
   (12162, 34, [AGroup 5 1 [sym_ppDirective]; AGroup 14849 1 [anon_sym_LPAREN];
     AGroup 14853 1 [anon_sym_POUND]; AGroup 14859 1 [aux_sym_ppUsesBlock_token1];
     AGroup 14863 1 [sym_kHat]; AGroup 14865 1 [sym_ppFragmentExpr];
     AGroup 14867 1 [sym_identifier]; AGroup 14871 1 [sym_kSpecialize];
     AGroup 14873 1 [sym_kReference]; AGroup 14875 1 [sym_kArray]; AGroup 14881 1 [sym_kFile];
     AGroup 14889 1 [sym_kSet]; AGroup 14891 1 [sym_kString]; AGroup 15387 1 [sym_kClass];
     AGroup 15389 1 [sym_kConst]; AGroup 15391 1 [sym_kPacked]; AGroup 15393 1 [sym_kRecord];
     SGroup 3870 1 [sym__ppIf]; SGroup 10605 1 [sym__subRangeUnary];
     SGroup 10614 1 [sym__subRangeBinary]; SGroup 10620 1 [sym__subRangeCall];
     SGroup 12378 1 [sym_arrayOfConstTyperef]; AGroup 3 2 syms_5; AGroup 14851 2 syms_6;
     AGroup 14855 2 syms_7; AGroup 14857 2 syms_8; AGroup 14861 2 syms_9; AGroup 14883 2 syms_11;
     SGroup 10647 2 syms_12; SGroup 12376 2 syms_29; SGroup 10482 3 syms_13;
     SGroup 11313 3 syms_30; SGroup 10505 4 syms_31; SGroup 12384 10 syms_32]);
   (12289, 34, [AGroup 5 1 [sym_ppDirective]; AGroup 14849 1 [anon_sym_LPAREN];
     AGroup 14853 1 [anon_sym_POUND]; AGroup 14859 1 [aux_sym_ppUsesBlock_token1];
     AGroup 14863 1 [sym_kHat]; AGroup 14865 1 [sym_ppFragmentExpr];
     AGroup 14867 1 [sym_identifier]; AGroup 14871 1 [sym_kSpecialize];
     AGroup 14873 1 [sym_kReference]; AGroup 14875 1 [sym_kArray]; AGroup 14881 1 [sym_kFile];
     AGroup 14889 1 [sym_kSet]; AGroup 14891 1 [sym_kString]; AGroup 15387 1 [sym_kClass];
     AGroup 15389 1 [sym_kConst]; AGroup 15391 1 [sym_kPacked]; AGroup 15393 1 [sym_kRecord];
     SGroup 3870 1 [sym__ppIf]; SGroup 10605 1 [sym__subRangeUnary];
     SGroup 10614 1 [sym__subRangeBinary]; SGroup 10620 1 [sym__subRangeCall];
     SGroup 12378 1 [sym_arrayOfConstTyperef]; AGroup 3 2 syms_5; AGroup 14851 2 syms_6;
     AGroup 14855 2 syms_7; AGroup 14857 2 syms_8; AGroup 14861 2 syms_9; AGroup 14883 2 syms_11;
     SGroup 10647 2 syms_12; SGroup 12267 2 syms_29; SGroup 10482 3 syms_13;
     SGroup 11313 3 syms_30; SGroup 10505 4 syms_31; SGroup 12384 10 syms_32]);
   (12416, 34, [AGroup 5 1 [sym_ppDirective]; AGroup 14853 1 [anon_sym_POUND];
     AGroup 14859 1 [aux_sym_ppUsesBlock_token1]; AGroup 15357 1 [anon_sym_LPAREN];
     AGroup 15359 1 [sym_kHat]; AGroup 15361 1 [sym_ppFragmentExpr];
     AGroup 15363 1 [sym_identifier]; AGroup 15365 1 [sym_kSpecialize];
     AGroup 15367 1 [sym_kReference]; AGroup 15369 1 [sym_kArray]; AGroup 15371 1 [sym_kClass];
     AGroup 15373 1 [sym_kConst]; AGroup 15375 1 [sym_kFile]; AGroup 15379 1 [sym_kPacked];
     AGroup 15381 1 [sym_kRecord]; AGroup 15383 1 [sym_kSet]; AGroup 15385 1 [sym_kString];
     SGroup 3813 1 [sym__ppIf]; SGroup 10605 1 [sym__subRangeUnary];
     SGroup 10614 1 [sym__subRangeBinary]; SGroup 10620 1 [sym__subRangeCall];
     SGroup 11206 1 [sym_arrayOfConstTyperef]; AGroup 3 2 syms_5; AGroup 14851 2 syms_6;
     AGroup 14855 2 syms_7; AGroup 14857 2 syms_8; AGroup 14861 2 syms_9; AGroup 15377 2 syms_11;
     SGroup 10647 2 syms_12; SGroup 11095 2 syms_29; SGroup 10482 3 syms_13;
     SGroup 11272 3 syms_30; SGroup 10358 4 syms_31; SGroup 11091 10 syms_32]);
   (12543, 34, [AGroup 5 1 [sym_ppDirective]; AGroup 14853 1 [anon_sym_POUND];
     AGroup 14859 1 [aux_sym_ppUsesBlock_token1]; AGroup 15405 1 [anon_sym_LPAREN];
     AGroup 15407 1 [sym_kHat]; AGroup 15409 1 [sym_ppFragmentExpr];
     AGroup 15411 1 [sym_identifier]; AGroup 15413 1 [sym_kSpecialize];
     AGroup 15415 1 [sym_kReference]; AGroup 15417 1 [sym_kArray]; AGroup 15419 1 [sym_kClass];
     AGroup 15421 1 [sym_kConst]; AGroup 15423 1 [sym_kFile]; AGroup 15427 1 [sym_kPacked];
     AGroup 15429 1 [sym_kRecord]; AGroup 15431 1 [sym_kSet]; AGroup 15433 1 [sym_kString];
     SGroup 3836 1 [sym__ppIf]; SGroup 10605 1 [sym__subRangeUnary];
     SGroup 10614 1 [sym__subRangeBinary]; SGroup 10620 1 [sym__subRangeCall];
     SGroup 12869 1 [sym_arrayOfConstTyperef]; AGroup 3 2 syms_5; AGroup 14851 2 syms_6;
     AGroup 14855 2 syms_7; AGroup 14857 2 syms_8; AGroup 14861 2 syms_9; AGroup 15425 2 syms_11;
     SGroup 10647 2 syms_12; SGroup 12514 2 syms_29; SGroup 10482 3 syms_13;
     SGroup 11244 3 syms_30; SGroup 10538 4 syms_31; SGroup 12943 10 syms_32]);
   (12670, 34, [AGroup 5 1 [sym_ppDirective]; AGroup 14853 1 [anon_sym_POUND];
     AGroup 14859 1 [aux_sym_ppUsesBlock_token1]; AGroup 15405 1 [anon_sym_LPAREN];
     AGroup 15407 1 [sym_kHat]; AGroup 15409 1 [sym_ppFragmentExpr];
     AGroup 15411 1 [sym_identifier]; AGroup 15413 1 [sym_kSpecialize];
     AGroup 15415 1 [sym_kReference]; AGroup 15417 1 [sym_kArray]; AGroup 15419 1 [sym_kClass];
     AGroup 15421 1 [sym_kConst]; AGroup 15423 1 [sym_kFile]; AGroup 15427 1 [sym_kPacked];
     AGroup 15429 1 [sym_kRecord]; AGroup 15431 1 [sym_kSet]; AGroup 15433 1 [sym_kString];
     SGroup 3836 1 [sym__ppIf]; SGroup 10605 1 [sym__subRangeUnary];
     SGroup 10614 1 [sym__subRangeBinary]; SGroup 10620 1 [sym__subRangeCall];
     SGroup 12869 1 [sym_arrayOfConstTyperef]; AGroup 3 2 syms_5; AGroup 14851 2 syms_6;
     AGroup 14855 2 syms_7; AGroup 14857 2 syms_8; AGroup 14861 2 syms_9; AGroup 15425 2 syms_11;
     SGroup 10647 2 syms_12; SGroup 12808 2 syms_29; SGroup 10482 3 syms_13;
     SGroup 11244 3 syms_30; SGroup 10538 4 syms_31; SGroup 12943 10 syms_32]);
   (12797, 19, [AGroup 5 1 [sym_ppDirective]; AGroup 15329 1 [aux_sym_ppUsesBlock_token1];
     AGroup 15331 1 [aux_sym_ppUsesBlock_token2]; AGroup 15337 1 [sym_kDispId];
     AGroup 15339 1 [sym_kPublic]; AGroup 15341 1 [sym_kMessage];
     AGroup 15343 1 [sym_kDeprecated]; AGroup 15345 1 [sym_kExport]; AGroup 15347 1 [sym_kAlias];
     AGroup 15435 1 [aux_sym_ppUsesBlock_token3]; SGroup 2593 1 [sym__ppEndIf];
     SGroup 2857 1 [sym__ppIf]; SGroup 2878 1 [aux_sym__procAttributesPp_repeat1];
     SGroup 3321 1 [sym__ppElse]; SGroup 4086 1 [sym__procAttributesPp];
     SGroup 11579 1 [sym_procAttribute]; SGroup 11948 1 [aux_sym__procAttributesPp_repeat2];
     AGroup 3 2 syms_5; AGroup 15335 39 syms_33]);
   (12894, 34, [AGroup 5 1 [sym_ppDirective]; AGroup 14849 1 [anon_sym_LPAREN];
     AGroup 14853 1 [anon_sym_POUND]; AGroup 14859 1 [aux_sym_ppUsesBlock_token1];
     AGroup 14863 1 [sym_kHat]; AGroup 14865 1 [sym_ppFragmentExpr];
     AGroup 14867 1 [sym_identifier]; AGroup 14871 1 [sym_kSpecialize];
     AGroup 14873 1 [sym_kReference]; AGroup 14875 1 [sym_kArray]; AGroup 14881 1 [sym_kFile];
     AGroup 14889 1 [sym_kSet]; AGroup 14891 1 [sym_kString]; AGroup 15387 1 [sym_kClass];
     AGroup 15389 1 [sym_kConst]; AGroup 15391 1 [sym_kPacked]; AGroup 15393 1 [sym_kRecord];
     SGroup 3870 1 [sym__ppIf]; SGroup 10605 1 [sym__subRangeUnary];
     SGroup 10614 1 [sym__subRangeBinary]; SGroup 10620 1 [sym__subRangeCall];
     SGroup 12378 1 [sym_arrayOfConstTyperef]; AGroup 3 2 syms_5; AGroup 14851 2 syms_6;
     AGroup 14855 2 syms_7; AGroup 14857 2 syms_8; AGroup 14861 2 syms_9; AGroup 14883 2 syms_11;
     SGroup 10647 2 syms_12; SGroup 12093 2 syms_29; SGroup 10482 3 syms_13;
     SGroup 11313 3 syms_30; SGroup 10505 4 syms_31; SGroup 12384 10 syms_32]);
   (13021, 34, [AGroup 5 1 [sym_ppDirective]; AGroup 14853 1 [anon_sym_POUND];
     AGroup 14859 1 [aux_sym_ppUsesBlock_token1]; AGroup 15299 1 [anon_sym_LPAREN];
     AGroup 15301 1 [sym_kHat]; AGroup 15303 1 [sym_ppFragmentExpr];
     AGroup 15305 1 [sym_identifier]; AGroup 15307 1 [sym_kSpecialize];
     AGroup 15309 1 [sym_kReference]; AGroup 15311 1 [sym_kArray]; AGroup 15313 1 [sym_kClass];
     AGroup 15315 1 [sym_kConst]; AGroup 15317 1 [sym_kFile]; AGroup 15321 1 [sym_kPacked];
     AGroup 15323 1 [sym_kRecord]; AGroup 15325 1 [sym_kSet]; AGroup 15327 1 [sym_kString];
     SGroup 3815 1 [sym__ppIf]; SGroup 10605 1 [sym__subRangeUnary];
     SGroup 10614 1 [sym__subRangeBinary]; SGroup 10620 1 [sym__subRangeCall];
     SGroup 13892 1 [sym_arrayOfConstTyperef]; AGroup 3 2 syms_5; AGroup 14851 2 syms_6;
     AGroup 14855 2 syms_7; AGroup 14857 2 syms_8; AGroup 14861 2 syms_9; AGroup 15319 2 syms_11;
     SGroup 10647 2 syms_12; SGroup 13783 2 syms_29; SGroup 10482 3 syms_13;
     SGroup 11297 3 syms_30; SGroup 10560 4 syms_31; SGroup 13955 10 syms_32]);
   (13148, 19, [AGroup 5 1 [sym_ppDirective]; AGroup 11641 1 [sym_kDispId]; AGroup 11643 1 [sym_kPublic];
     AGroup 11645 1 [sym_kMessage]; AGroup 11647 1 [sym_kDeprecated];
     AGroup 11649 1 [sym_kExport]; AGroup 11651 1 [sym_kAlias];
     AGroup 15329 1 [aux_sym_ppUsesBlock_token1]; AGroup 15331 1 [aux_sym_ppUsesBlock_token2];
     AGroup 15435 1 [aux_sym_ppUsesBlock_token3]; SGroup 2599 1 [sym__ppEndIf];
     SGroup 2857 1 [sym__ppIf]; SGroup 3321 1 [sym__ppElse];
     SGroup 3341 1 [aux_sym__procAttributesPp_repeat1]; SGroup 4086 1 [sym__procAttributesPp];
     SGroup 11956 1 [aux_sym__procAttributesPp_repeat2]; SGroup 14440 1 [sym_procAttribute];
     AGroup 3 2 syms_5; AGroup 1016 39 syms_33]);
   (13245, 5, [AGroup 5 1 [sym_ppDirective]; AGroup 3 2 syms_5; AGroup 15439 7 syms_34;
     AGroup 15403 18 syms_36; AGroup 15437 30 syms_37]);
   (13314, 34, [AGroup 5 1 [sym_ppDirective]; AGroup 14853 1 [anon_sym_POUND];
     AGroup 14859 1 [aux_sym_ppUsesBlock_token1]; AGroup 15357 1 [anon_sym_LPAREN];
     AGroup 15359 1 [sym_kHat]; AGroup 15361 1 [sym_ppFragmentExpr];
     AGroup 15363 1 [sym_identifier]; AGroup 15365 1 [sym_kSpecialize];
     AGroup 15367 1 [sym_kReference]; AGroup 15369 1 [sym_kArray]; AGroup 15371 1 [sym_kClass];
     AGroup 15373 1 [sym_kConst]; AGroup 15375 1 [sym_kFile]; AGroup 15379 1 [sym_kPacked];
     AGroup 15381 1 [sym_kRecord]; AGroup 15383 1 [sym_kSet]; AGroup 15385 1 [sym_kString];
     SGroup 3813 1 [sym__ppIf]; SGroup 10605 1 [sym__subRangeUnary];
     SGroup 10614 1 [sym__subRangeBinary]; SGroup 10620 1 [sym__subRangeCall];
     SGroup 11206 1 [sym_arrayOfConstTyperef]; AGroup 3 2 syms_5; AGroup 14851 2 syms_6;
     AGroup 14855 2 syms_7; AGroup 14857 2 syms_8; AGroup 14861 2 syms_9; AGroup 15377 2 syms_11;
     SGroup 10647 2 syms_12; SGroup 11133 2 syms_29; SGroup 10482 3 syms_13;
     SGroup 11272 3 syms_30; SGroup 10358 4 syms_31; SGroup 11091 10 syms_32]);
   (13441, 34, [AGroup 5 1 [sym_ppDirective]; AGroup 14853 1 [anon_sym_POUND];
     AGroup 14859 1 [aux_sym_ppUsesBlock_token1]; AGroup 15405 1 [anon_sym_LPAREN];
     AGroup 15407 1 [sym_kHat]; AGroup 15409 1 [sym_ppFragmentExpr];
     AGroup 15411 1 [sym_identifier]; AGroup 15413 1 [sym_kSpecialize];
     AGroup 15415 1 [sym_kReference]; AGroup 15417 1 [sym_kArray]; AGroup 15419 1 [sym_kClass];
     AGroup 15421 1 [sym_kConst]; AGroup 15423 1 [sym_kFile]; AGroup 15427 1 [sym_kPacked];
     AGroup 15429 1 [sym_kRecord]; AGroup 15431 1 [sym_kSet]; AGroup 15433 1 [sym_kString];
     SGroup 3836 1 [sym__ppIf]; SGroup 10605 1 [sym__subRangeUnary];
     SGroup 10614 1 [sym__subRangeBinary]; SGroup 10620 1 [sym__subRangeCall];
     SGroup 12869 1 [sym_arrayOfConstTyperef]; AGroup 3 2 syms_5; AGroup 14851 2 syms_6;
     AGroup 14855 2 syms_7; AGroup 14857 2 syms_8; AGroup 14861 2 syms_9; AGroup 15425 2 syms_11;
     SGroup 10647 2 syms_12; SGroup 12807 2 syms_29; SGroup 10482 3 syms_13;
     SGroup 11244 3 syms_30; SGroup 10538 4 syms_31; SGroup 12943 10 syms_32]);
   (13568, 34, [AGroup 5 1 [sym_ppDirective]; AGroup 14849 1 [anon_sym_LPAREN];
     AGroup 14853 1 [anon_sym_POUND]; AGroup 14859 1 [aux_sym_ppUsesBlock_token1];
     AGroup 14863 1 [sym_kHat]; AGroup 14865 1 [sym_ppFragmentExpr];
     AGroup 14867 1 [sym_identifier]; AGroup 14871 1 [sym_kSpecialize];
     AGroup 14873 1 [sym_kReference]; AGroup 14875 1 [sym_kArray]; AGroup 14881 1 [sym_kFile];
     AGroup 14889 1 [sym_kSet]; AGroup 14891 1 [sym_kString]; AGroup 15387 1 [sym_kClass];
     AGroup 15389 1 [sym_kConst]; AGroup 15391 1 [sym_kPacked]; AGroup 15393 1 [sym_kRecord];
     SGroup 3870 1 [sym__ppIf]; SGroup 10605 1 [sym__subRangeUnary];
     SGroup 10614 1 [sym__subRangeBinary]; SGroup 10620 1 [sym__subRangeCall];
     SGroup 12378 1 [sym_arrayOfConstTyperef]; AGroup 3 2 syms_5; AGroup 14851 2 syms_6;
     AGroup 14855 2 syms_7; AGroup 14857 2 syms_8; AGroup 14861 2 syms_9; AGroup 14883 2 syms_11;
     SGroup 10647 2 syms_12; SGroup 12374 2 syms_29; SGroup 10482 3 syms_13;
     SGroup 11313 3 syms_30; SGroup 10505 4 syms_31; SGroup 12384 10 syms_32]);
   (13695, 34, [AGroup 5 1 [sym_ppDirective]; AGroup 14853 1 [anon_sym_POUND];
     AGroup 14859 1 [aux_sym_ppUsesBlock_token1]; AGroup 15299 1 [anon_sym_LPAREN];
     AGroup 15301 1 [sym_kHat]; AGroup 15303 1 [sym_ppFragmentExpr];
     AGroup 15305 1 [sym_identifier]; AGroup 15307 1 [sym_kSpecialize];
     AGroup 15309 1 [sym_kReference]; AGroup 15311 1 [sym_kArray]; AGroup 15313 1 [sym_kClass];
     AGroup 15315 1 [sym_kConst]; AGroup 15317 1 [sym_kFile]; AGroup 15321 1 [sym_kPacked];
     AGroup 15323 1 [sym_kRecord]; AGroup 15325 1 [sym_kSet]; AGroup 15327 1 [sym_kString];
     SGroup 3815 1 [sym__ppIf]; SGroup 10605 1 [sym__subRangeUnary];
     SGroup 10614 1 [sym__subRangeBinary]; SGroup 10620 1 [sym__subRangeCall];
     SGroup 13892 1 [sym_arrayOfConstTyperef]; AGroup 3 2 syms_5; AGroup 14851 2 syms_6;
     AGroup 14855 2 syms_7; AGroup 14857 2 syms_8; AGroup 14861 2 syms_9; AGroup 15319 2 syms_11;
     SGroup 10647 2 syms_12; SGroup 13861 2 syms_29; SGroup 10482 3 syms_13;
     SGroup 11297 3 syms_30; SGroup 10560 4 syms_31; SGroup 13955 10 syms_32]);
   (13822, 21, [AGroup 5 1 [sym_ppDirective]; AGroup 15441 1 [anon_sym_LBRACK];
     AGroup 15443 1 [anon_sym_LPAREN]; AGroup 15447 1 [anon_sym_POUND];
     AGroup 15459 1 [sym_kSpecialize]; AGroup 15463 1 [sym_kIf]; AGroup 15465 1 [sym_kInherited];
     AGroup 15467 1 [sym_kString]; AGroup 3 2 syms_5; AGroup 15445 2 syms_6;
     AGroup 15449 2 syms_7; AGroup 15451 2 syms_8; AGroup 15453 2 syms_9; AGroup 15455 2 syms_10;
     AGroup 15461 2 syms_11; SGroup 7612 2 syms_12; SGroup 6946 3 syms_13; SGroup 7982 4 syms_14;
     AGroup 15457 5 syms_15; AGroup 14747 8 syms_38; SGroup 7425 14 syms_17]);
   (13923, 21, [AGroup 5 1 [sym_ppDirective]; AGroup 9754 1 [anon_sym_LBRACK];
     AGroup 9756 1 [anon_sym_LPAREN]; AGroup 9760 1 [anon_sym_POUND];
     AGroup 9776 1 [sym_kSpecialize]; AGroup 9794 1 [sym_kInherited];
     AGroup 9800 1 [sym_kString]; AGroup 15469 1 [sym_kIf]; AGroup 3 2 syms_5;
     AGroup 9758 2 syms_6; AGroup 9762 2 syms_7; AGroup 9764 2 syms_8; AGroup 9766 2 syms_9;
     AGroup 9768 2 syms_10; AGroup 9788 2 syms_11; SGroup 7474 2 syms_12; SGroup 6591 3 syms_13;
     SGroup 7919 4 syms_14; AGroup 9770 5 syms_15; AGroup 14747 8 syms_39; SGroup 7326 14 syms_17]);
   (14024, 5, [AGroup 5 1 [sym_ppDirective]; AGroup 3 2 syms_5; AGroup 15473 4 syms_25;
     AGroup 15403 5 syms_40; AGroup 15471 46 syms_26]);
   (14093, 19, [AGroup 5 1 [sym_ppDirective]; AGroup 15329 1 [aux_sym_ppUsesBlock_token1];
     AGroup 15331 1 [aux_sym_ppUsesBlock_token2]; AGroup 15337 1 [sym_kDispId];
     AGroup 15339 1 [sym_kPublic]; AGroup 15341 1 [sym_kMessage];
     AGroup 15343 1 [sym_kDeprecated]; AGroup 15345 1 [sym_kExport]; AGroup 15347 1 [sym_kAlias];
     AGroup 15395 1 [aux_sym_ppUsesBlock_token3]; SGroup 2690 1 [sym__ppEndIf];
     SGroup 2857 1 [sym__ppIf]; SGroup 2865 1 [aux_sym__procAttributesPp_repeat1];
     SGroup 3321 1 [sym__ppElse]; SGroup 4086 1 [sym__procAttributesPp];
     SGroup 11549 1 [sym_procAttribute]; SGroup 11870 1 [aux_sym__procAttributesPp_repeat2];
     AGroup 3 2 syms_5; AGroup 15335 39 syms_33]);
   (14190, 4, [AGroup 15475 1 [anon_sym_LBRACK]; SGroup 2889 1 [aux_sym_rttiAttributes_repeat2];
     AGroup 3 3 syms_1; AGroup 15477 53 syms_41]);
   (14257, 4, [AGroup 15479 1 [anon_sym_LBRACK]; SGroup 2889 1 [aux_sym_rttiAttributes_repeat2];
     AGroup 3 3 syms_1; AGroup 11318 53 syms_41]);
   (14324, 34, [AGroup 5 1 [sym_ppDirective]; AGroup 14853 1 [anon_sym_POUND];
     AGroup 14859 1 [aux_sym_ppUsesBlock_token1]; AGroup 15405 1 [anon_sym_LPAREN];
     AGroup 15407 1 [sym_kHat]; AGroup 15409 1 [sym_ppFragmentExpr];
     AGroup 15411 1 [sym_identifier]; AGroup 15413 1 [sym_kSpecialize];
     AGroup 15415 1 [sym_kReference]; AGroup 15417 1 [sym_kArray]; AGroup 15419 1 [sym_kClass];
     AGroup 15421 1 [sym_kConst]; AGroup 15423 1 [sym_kFile]; AGroup 15427 1 [sym_kPacked];
     AGroup 15429 1 [sym_kRecord]; AGroup 15431 1 [sym_kSet]; AGroup 15433 1 [sym_kString];
     SGroup 3836 1 [sym__ppIf]; SGroup 10605 1 [sym__subRangeUnary];
     SGroup 10614 1 [sym__subRangeBinary]; SGroup 10620 1 [sym__subRangeCall];
     SGroup 12869 1 [sym_arrayOfConstTyperef]; AGroup 3 2 syms_5; AGroup 14851 2 syms_6;
     AGroup 14855 2 syms_7; AGroup 14857 2 syms_8; AGroup 14861 2 syms_9; AGroup 15425 2 syms_11;
     SGroup 10647 2 syms_12; SGroup 12859 2 syms_29; SGroup 10482 3 syms_13;
     SGroup 11244 3 syms_30; SGroup 10538 4 syms_31; SGroup 12943 10 syms_32]);
   (14451, 21, [AGroup 5 1 [sym_ppDirective]; AGroup 15441 1 [anon_sym_LBRACK];
     AGroup 15443 1 [anon_sym_LPAREN]; AGroup 15447 1 [anon_sym_POUND];
     AGroup 15459 1 [sym_kSpecialize]; AGroup 15463 1 [sym_kIf]; AGroup 15465 1 [sym_kInherited];
     AGroup 15467 1 [sym_kString]; AGroup 3 2 syms_5; AGroup 15445 2 syms_6;
     AGroup 15449 2 syms_7; AGroup 15451 2 syms_8; AGroup 15453 2 syms_9; AGroup 15455 2 syms_10;
     AGroup 15461 2 syms_11; SGroup 7612 2 syms_12; SGroup 6946 3 syms_13; SGroup 7986 4 syms_14;
     AGroup 15457 5 syms_15; AGroup 14765 8 syms_38; SGroup 7425 14 syms_17]);
   (14552, 5, [AGroup 5 1 [sym_ppDirective]; AGroup 3 2 syms_5; AGroup 15484 4 syms_25;
     AGroup 15403 5 syms_40; AGroup 15482 46 syms_26]);
   (14621, 5, [AGroup 5 1 [sym_ppDirective]; AGroup 3 2 syms_5; AGroup 15488 7 syms_34;
     AGroup 15403 18 syms_36; AGroup 15486 30 syms_37]);
   (14690, 5, [AGroup 5 1 [sym_ppDirective]; AGroup 3 2 syms_5; AGroup 15492 4 syms_25;
     AGroup 15403 5 syms_40; AGroup 15490 46 syms_26]);
   (14759, 19, [AGroup 5 1 [sym_ppDirective]; AGroup 11641 1 [sym_kDispId]; AGroup 11643 1 [sym_kPublic];
     AGroup 11645 1 [sym_kMessage]; AGroup 11647 1 [sym_kDeprecated];
     AGroup 11649 1 [sym_kExport]; AGroup 11651 1 [sym_kAlias];
     AGroup 15329 1 [aux_sym_ppUsesBlock_token1]; AGroup 15331 1 [aux_sym_ppUsesBlock_token2];
     AGroup 15349 1 [aux_sym_ppUsesBlock_token3]; SGroup 2624 1 [sym__ppEndIf];
     SGroup 2857 1 [sym__ppIf]; SGroup 3321 1 [sym__ppElse];
     SGroup 3341 1 [aux_sym__procAttributesPp_repeat1]; SGroup 4086 1 [sym__procAttributesPp];
     SGroup 11805 1 [aux_sym__procAttributesPp_repeat2]; SGroup 14440 1 [sym_procAttribute];
     AGroup 3 2 syms_5; AGroup 1016 39 syms_33]);
   (14856, 34, [AGroup 5 1 [sym_ppDirective]; AGroup 14853 1 [anon_sym_POUND];
     AGroup 14859 1 [aux_sym_ppUsesBlock_token1]; AGroup 15357 1 [anon_sym_LPAREN];
     AGroup 15359 1 [sym_kHat]; AGroup 15361 1 [sym_ppFragmentExpr];
     AGroup 15363 1 [sym_identifier]; AGroup 15365 1 [sym_kSpecialize];
     AGroup 15367 1 [sym_kReference]; AGroup 15369 1 [sym_kArray]; AGroup 15371 1 [sym_kClass];
     AGroup 15373 1 [sym_kConst]; AGroup 15375 1 [sym_kFile]; AGroup 15379 1 [sym_kPacked];
     AGroup 15381 1 [sym_kRecord]; AGroup 15383 1 [sym_kSet]; AGroup 15385 1 [sym_kString];
     SGroup 3813 1 [sym__ppIf]; SGroup 10605 1 [sym__subRangeUnary];
     SGroup 10614 1 [sym__subRangeBinary]; SGroup 10620 1 [sym__subRangeCall];
     SGroup 11206 1 [sym_arrayOfConstTyperef]; AGroup 3 2 syms_5; AGroup 14851 2 syms_6;
     AGroup 14855 2 syms_7; AGroup 14857 2 syms_8; AGroup 14861 2 syms_9; AGroup 15377 2 syms_11;
     SGroup 10647 2 syms_12; SGroup 11218 2 syms_29; SGroup 10482 3 syms_13;
     SGroup 11272 3 syms_30; SGroup 10358 4 syms_31; SGroup 11091 10 syms_32]);
   (14983, 5, [AGroup 5 1 [sym_ppDirective]; AGroup 3 2 syms_5; AGroup 15401 4 syms_25;
     AGroup 15403 5 syms_40; AGroup 15399 46 syms_26]);
   (15052, 34, [AGroup 5 1 [sym_ppDirective]; AGroup 14853 1 [anon_sym_POUND];
     AGroup 14859 1 [aux_sym_ppUsesBlock_token1]; AGroup 15299 1 [anon_sym_LPAREN];
     AGroup 15301 1 [sym_kHat]; AGroup 15303 1 [sym_ppFragmentExpr];
     AGroup 15305 1 [sym_identifier]; AGroup 15307 1 [sym_kSpecialize];
     AGroup 15309 1 [sym_kReference]; AGroup 15311 1 [sym_kArray]; AGroup 15313 1 [sym_kClass];
     AGroup 15315 1 [sym_kConst]; AGroup 15317 1 [sym_kFile]; AGroup 15321 1 [sym_kPacked];
     AGroup 15323 1 [sym_kRecord]; AGroup 15325 1 [sym_kSet]; AGroup 15327 1 [sym_kString];
     SGroup 3815 1 [sym__ppIf]; SGroup 10605 1 [sym__subRangeUnary];
     SGroup 10614 1 [sym__subRangeBinary]; SGroup 10620 1 [sym__subRangeCall];
     SGroup 13892 1 [sym_arrayOfConstTyperef]; AGroup 3 2 syms_5; AGroup 14851 2 syms_6;
     AGroup 14855 2 syms_7; AGroup 14857 2 syms_8; AGroup 14861 2 syms_9; AGroup 15319 2 syms_11;
     SGroup 10647 2 syms_12; SGroup 13819 2 syms_29; SGroup 10482 3 syms_13;
     SGroup 11297 3 syms_30; SGroup 10560 4 syms_31; SGroup 13955 10 syms_32]);
   (15179, 19, [AGroup 5 1 [sym_ppDirective]; AGroup 15329 1 [aux_sym_ppUsesBlock_token1];
     AGroup 15331 1 [aux_sym_ppUsesBlock_token2]; AGroup 15337 1 [sym_kDispId];
     AGroup 15339 1 [sym_kPublic]; AGroup 15341 1 [sym_kMessage];
     AGroup 15343 1 [sym_kDeprecated]; AGroup 15345 1 [sym_kExport]; AGroup 15347 1 [sym_kAlias];
     AGroup 15397 1 [aux_sym_ppUsesBlock_token3]; SGroup 982 1 [sym__ppEndIf];
     SGroup 2857 1 [sym__ppIf]; SGroup 2866 1 [aux_sym__procAttributesPp_repeat1];
     SGroup 3321 1 [sym__ppElse]; SGroup 4086 1 [sym__procAttributesPp];
     SGroup 11561 1 [sym_procAttribute]; SGroup 11900 1 [aux_sym__procAttributesPp_repeat2];
     AGroup 3 2 syms_5; AGroup 15335 39 syms_33]);
   (15276, 5, [AGroup 5 1 [sym_ppDirective]; AGroup 3 2 syms_5; AGroup 15496 7 syms_34;
     AGroup 15403 18 syms_36; AGroup 15494 30 syms_37]);
   (15345, 34, [AGroup 5 1 [sym_ppDirective]; AGroup 14849 1 [anon_sym_LPAREN];
     AGroup 14853 1 [anon_sym_POUND]; AGroup 14859 1 [aux_sym_ppUsesBlock_token1];
     AGroup 14863 1 [sym_kHat]; AGroup 14865 1 [sym_ppFragmentExpr];
     AGroup 14867 1 [sym_identifier]; AGroup 14871 1 [sym_kSpecialize];
     AGroup 14873 1 [sym_kReference]; AGroup 14875 1 [sym_kArray]; AGroup 14881 1 [sym_kFile];
     AGroup 14889 1 [sym_kSet]; AGroup 14891 1 [sym_kString]; AGroup 15387 1 [sym_kClass];
     AGroup 15389 1 [sym_kConst]; AGroup 15391 1 [sym_kPacked]; AGroup 15393 1 [sym_kRecord];
     SGroup 3870 1 [sym__ppIf]; SGroup 10605 1 [sym__subRangeUnary];
     SGroup 10614 1 [sym__subRangeBinary]; SGroup 10620 1 [sym__subRangeCall];
     SGroup 12378 1 [sym_arrayOfConstTyperef]; AGroup 3 2 syms_5; AGroup 14851 2 syms_6;
     AGroup 14855 2 syms_7; AGroup 14857 2 syms_8; AGroup 14861 2 syms_9; AGroup 14883 2 syms_11;
     SGroup 10647 2 syms_12; SGroup 12243 2 syms_29; SGroup 10482 3 syms_13;
     SGroup 11313 3 syms_30; SGroup 10505 4 syms_31; SGroup 12384 10 syms_32]);
   (15472, 5, [AGroup 5 1 [sym_ppDirective]; AGroup 3 2 syms_5; AGroup 15439 4 syms_25;
     AGroup 15403 5 syms_40; AGroup 15437 46 syms_26]);
   (15541, 5, [AGroup 5 1 [sym_ppDirective]; AGroup 3 2 syms_5; AGroup 15488 4 syms_25;
     AGroup 15403 5 syms_40; AGroup 15486 46 syms_26]);
   (15610, 5, [AGroup 5 1 [sym_ppDirective]; AGroup 3 2 syms_5; AGroup 15496 4 syms_25;
     AGroup 15403 5 syms_40; AGroup 15494 46 syms_26]);
   (15679, 34, [AGroup 5 1 [sym_ppDirective]; AGroup 14853 1 [anon_sym_POUND];
     AGroup 14859 1 [aux_sym_ppUsesBlock_token1]; AGroup 15405 1 [anon_sym_LPAREN];
     AGroup 15407 1 [sym_kHat]; AGroup 15409 1 [sym_ppFragmentExpr];
     AGroup 15411 1 [sym_identifier]; AGroup 15413 1 [sym_kSpecialize];
     AGroup 15415 1 [sym_kReference]; AGroup 15417 1 [sym_kArray]; AGroup 15419 1 [sym_kClass];
     AGroup 15421 1 [sym_kConst]; AGroup 15423 1 [sym_kFile]; AGroup 15427 1 [sym_kPacked];
     AGroup 15429 1 [sym_kRecord]; AGroup 15431 1 [sym_kSet]; AGroup 15433 1 [sym_kString];
     SGroup 3836 1 [sym__ppIf]; SGroup 10605 1 [sym__subRangeUnary];
     SGroup 10614 1 [sym__subRangeBinary]; SGroup 10620 1 [sym__subRangeCall];
     SGroup 12869 1 [sym_arrayOfConstTyperef]; AGroup 3 2 syms_5; AGroup 14851 2 syms_6;
     AGroup 14855 2 syms_7; AGroup 14857 2 syms_8; AGroup 14861 2 syms_9; AGroup 15425 2 syms_11;
     SGroup 10647 2 syms_12; SGroup 12682 2 syms_29; SGroup 10482 3 syms_13;
     SGroup 11244 3 syms_30; SGroup 10538 4 syms_31; SGroup 12943 10 syms_32]);
   (15806, 19, [AGroup 5 1 [sym_ppDirective]; AGroup 11641 1 [sym_kDispId]; AGroup 11643 1 [sym_kPublic];
     AGroup 11645 1 [sym_kMessage]; AGroup 11647 1 [sym_kDeprecated];
     AGroup 11649 1 [sym_kExport]; AGroup 11651 1 [sym_kAlias];
     AGroup 15329 1 [aux_sym_ppUsesBlock_token1]; AGroup 15331 1 [aux_sym_ppUsesBlock_token2];
     AGroup 15498 1 [aux_sym_ppUsesBlock_token3]; SGroup 1236 1 [sym__ppEndIf];
     SGroup 2857 1 [sym__ppIf]; SGroup 3321 1 [sym__ppElse];
     SGroup 3341 1 [aux_sym__procAttributesPp_repeat1]; SGroup 4086 1 [sym__procAttributesPp];
     SGroup 11852 1 [aux_sym__procAttributesPp_repeat2]; SGroup 14440 1 [sym_procAttribute];
     AGroup 3 2 syms_5; AGroup 1016 39 syms_33]);
   (15903, 19, [AGroup 5 1 [sym_ppDirective]; AGroup 15329 1 [aux_sym_ppUsesBlock_token1];
     AGroup 15331 1 [aux_sym_ppUsesBlock_token2]; AGroup 15337 1 [sym_kDispId];
     AGroup 15339 1 [sym_kPublic]; AGroup 15341 1 [sym_kMessage];
     AGroup 15343 1 [sym_kDeprecated]; AGroup 15345 1 [sym_kExport]; AGroup 15347 1 [sym_kAlias];
     AGroup 15500 1 [aux_sym_ppUsesBlock_token3]; SGroup 2537 1 [sym__ppEndIf];
     SGroup 2857 1 [sym__ppIf]; SGroup 2912 1 [aux_sym__procAttributesPp_repeat1];
     SGroup 3321 1 [sym__ppElse]; SGroup 4086 1 [sym__procAttributesPp];
     SGroup 11583 1 [sym_procAttribute]; SGroup 11970 1 [aux_sym__procAttributesPp_repeat2];
     AGroup 3 2 syms_5; AGroup 15335 39 syms_33]);
   (16000, 21, [AGroup 5 1 [sym_ppDirective]; AGroup 9754 1 [anon_sym_LBRACK];
     AGroup 9756 1 [anon_sym_LPAREN]; AGroup 9760 1 [anon_sym_POUND];
     AGroup 9776 1 [sym_kSpecialize]; AGroup 9794 1 [sym_kInherited];
     AGroup 9800 1 [sym_kString]; AGroup 15469 1 [sym_kIf]; AGroup 3 2 syms_5;
     AGroup 9758 2 syms_6; AGroup 9762 2 syms_7; AGroup 9764 2 syms_8; AGroup 9766 2 syms_9;
     AGroup 9768 2 syms_10; AGroup 9788 2 syms_11; SGroup 7474 2 syms_12; SGroup 6591 3 syms_13;
     SGroup 7921 4 syms_14; AGroup 9770 5 syms_15; AGroup 14765 8 syms_39; SGroup 7326 14 syms_17]);
   (16101, 4, [AGroup 5 1 [sym_ppDirective]; AGroup 3 2 syms_5; AGroup 15355 4 syms_25;
     AGroup 15353 51 syms_27]);
   (16168, 5, [AGroup 5 1 [sym_ppDirective]; AGroup 3 2 syms_5; AGroup 15473 7 syms_34;
     AGroup 15403 18 syms_36; AGroup 15471 30 syms_37]);
   (16237, 5, [AGroup 5 1 [sym_ppDirective]; AGroup 3 2 syms_5; AGroup 15504 7 syms_34;
     AGroup 15403 18 syms_36; AGroup 15502 30 syms_37]);
   (16306, 19, [AGroup 5 1 [sym_ppDirective]; AGroup 11641 1 [sym_kDispId]; AGroup 11643 1 [sym_kPublic];
     AGroup 11645 1 [sym_kMessage]; AGroup 11647 1 [sym_kDeprecated];
     AGroup 11649 1 [sym_kExport]; AGroup 11651 1 [sym_kAlias];
     AGroup 15329 1 [aux_sym_ppUsesBlock_token1]; AGroup 15331 1 [aux_sym_ppUsesBlock_token2];
     AGroup 15500 1 [aux_sym_ppUsesBlock_token3]; SGroup 2483 1 [sym__ppEndIf];
     SGroup 2857 1 [sym__ppIf]; SGroup 3321 1 [sym__ppElse];
     SGroup 3341 1 [aux_sym__procAttributesPp_repeat1]; SGroup 4086 1 [sym__procAttributesPp];
     SGroup 11975 1 [aux_sym__procAttributesPp_repeat2]; SGroup 14440 1 [sym_procAttribute];
     AGroup 3 2 syms_5; AGroup 1016 39 syms_33]);
   (16403, 21, [AGroup 5 1 [sym_ppDirective]; AGroup 9634 1 [anon_sym_LBRACK];
     AGroup 9636 1 [anon_sym_LPAREN]; AGroup 9640 1 [anon_sym_POUND];
     AGroup 9656 1 [sym_kSpecialize]; AGroup 9674 1 [sym_kInherited];
     AGroup 9680 1 [sym_kString]; AGroup 15506 1 [sym_kIf]; AGroup 3 2 syms_5;
     AGroup 9638 2 syms_6; AGroup 9642 2 syms_7; AGroup 9644 2 syms_8; AGroup 9646 2 syms_9;
     AGroup 9648 2 syms_10; AGroup 9668 2 syms_11; SGroup 7552 2 syms_12; SGroup 6534 3 syms_13;
     SGroup 7860 4 syms_14; AGroup 9650 5 syms_15; AGroup 14747 8 syms_42; SGroup 7341 14 syms_17]);
   (16504, 5, [AGroup 5 1 [sym_ppDirective]; AGroup 3 2 syms_5; AGroup 15484 7 syms_34;
     AGroup 15403 18 syms_36; AGroup 15482 30 syms_37]);
   (16573, 4, [AGroup 5 1 [sym_ppDirective]; AGroup 3 2 syms_5; AGroup 15295 7 syms_34;
     AGroup 15293 48 syms_35]);
   (16640, 34, [AGroup 5 1 [sym_ppDirective]; AGroup 14853 1 [anon_sym_POUND];
     AGroup 14859 1 [aux_sym_ppUsesBlock_token1]; AGroup 15405 1 [anon_sym_LPAREN];
     AGroup 15407 1 [sym_kHat]; AGroup 15409 1 [sym_ppFragmentExpr];
     AGroup 15411 1 [sym_identifier]; AGroup 15413 1 [sym_kSpecialize];
     AGroup 15415 1 [sym_kReference]; AGroup 15417 1 [sym_kArray]; AGroup 15419 1 [sym_kClass];
     AGroup 15421 1 [sym_kConst]; AGroup 15423 1 [sym_kFile]; AGroup 15427 1 [sym_kPacked];
     AGroup 15429 1 [sym_kRecord]; AGroup 15431 1 [sym_kSet]; AGroup 15433 1 [sym_kString];
     SGroup 3836 1 [sym__ppIf]; SGroup 10605 1 [sym__subRangeUnary];
     SGroup 10614 1 [sym__subRangeBinary]; SGroup 10620 1 [sym__subRangeCall];
     SGroup 12869 1 [sym_arrayOfConstTyperef]; AGroup 3 2 syms_5; AGroup 14851 2 syms_6;
     AGroup 14855 2 syms_7; AGroup 14857 2 syms_8; AGroup 14861 2 syms_9; AGroup 15425 2 syms_11;
     SGroup 10647 2 syms_12; SGroup 12844 2 syms_29; SGroup 10482 3 syms_13;
     SGroup 11244 3 syms_30; SGroup 10538 4 syms_31; SGroup 12943 10 syms_32]);
   (16767, 21, [AGroup 5 1 [sym_ppDirective]; AGroup 9634 1 [anon_sym_LBRACK];
     AGroup 9636 1 [anon_sym_LPAREN]; AGroup 9640 1 [anon_sym_POUND];
     AGroup 9656 1 [sym_kSpecialize]; AGroup 9674 1 [sym_kInherited];
     AGroup 9680 1 [sym_kString]; AGroup 15506 1 [sym_kIf]; AGroup 3 2 syms_5;
     AGroup 9638 2 syms_6; AGroup 9642 2 syms_7; AGroup 9644 2 syms_8; AGroup 9646 2 syms_9;
     AGroup 9648 2 syms_10; AGroup 9668 2 syms_11; SGroup 7552 2 syms_12; SGroup 6534 3 syms_13;
     SGroup 7861 4 syms_14; AGroup 9650 5 syms_15; AGroup 14765 8 syms_42; SGroup 7341 14 syms_17]);
   (16868, 5, [AGroup 5 1 [sym_ppDirective]; AGroup 3 2 syms_5; AGroup 15492 7 syms_34;
     AGroup 15403 18 syms_36; AGroup 15490 30 syms_37]);
   (16937, 25, [AGroup 5 1 [sym_ppDirective]; AGroup 15508 1 [anon_sym_LBRACK];
     AGroup 15511 1 [anon_sym_LPAREN]; AGroup 15517 1 [anon_sym_POUND];
     AGroup 15535 1 [sym_kSpecialize]; AGroup 15543 1 [sym_kIf]; AGroup 15546 1 [sym_kInherited];
     AGroup 15549 1 [sym_kString]; SGroup 1434 1 [sym_caseLabel];
     SGroup 4012 1 [aux_sym_caseLabel_repeat1]; SGroup 13055 1 [sym_range]; AGroup 3 2 syms_5;
     AGroup 15514 2 syms_6; AGroup 15520 2 syms_7; AGroup 15523 2 syms_8; AGroup 15526 2 syms_9;
     AGroup 15529 2 syms_10; AGroup 15540 2 syms_11; SGroup 2919 2 syms_22;
     SGroup 8466 2 syms_12; AGroup 15538 3 syms_43; SGroup 7201 3 syms_13; SGroup 9575 4 syms_14;
     AGroup 15532 5 syms_15; SGroup 7990 14 syms_17]);
   (17046, 34, [AGroup 5 1 [sym_ppDirective]; AGroup 14853 1 [anon_sym_POUND];
     AGroup 14859 1 [aux_sym_ppUsesBlock_token1]; AGroup 15357 1 [anon_sym_LPAREN];
     AGroup 15359 1 [sym_kHat]; AGroup 15361 1 [sym_ppFragmentExpr];
     AGroup 15363 1 [sym_identifier]; AGroup 15365 1 [sym_kSpecialize];
     AGroup 15367 1 [sym_kReference]; AGroup 15369 1 [sym_kArray]; AGroup 15371 1 [sym_kClass];
     AGroup 15373 1 [sym_kConst]; AGroup 15375 1 [sym_kFile]; AGroup 15379 1 [sym_kPacked];
     AGroup 15381 1 [sym_kRecord]; AGroup 15383 1 [sym_kSet]; AGroup 15385 1 [sym_kString];
     SGroup 3813 1 [sym__ppIf]; SGroup 10605 1 [sym__subRangeUnary];
     SGroup 10614 1 [sym__subRangeBinary]; SGroup 10620 1 [sym__subRangeCall];
     SGroup 11206 1 [sym_arrayOfConstTyperef]; AGroup 3 2 syms_5; AGroup 14851 2 syms_6;
     AGroup 14855 2 syms_7; AGroup 14857 2 syms_8; AGroup 14861 2 syms_9; AGroup 15377 2 syms_11;
     SGroup 10647 2 syms_12; SGroup 11204 2 syms_29; SGroup 10482 3 syms_13;
     SGroup 11272 3 syms_30; SGroup 10358 4 syms_31; SGroup 11091 10 syms_32]);
   (17173, 19, [AGroup 5 1 [sym_ppDirective]; AGroup 15329 1 [aux_sym_ppUsesBlock_token1];
     AGroup 15331 1 [aux_sym_ppUsesBlock_token2]; AGroup 15337 1 [sym_kDispId];
     AGroup 15339 1 [sym_kPublic]; AGroup 15341 1 [sym_kMessage];
     AGroup 15343 1 [sym_kDeprecated]; AGroup 15345 1 [sym_kExport]; AGroup 15347 1 [sym_kAlias];
     AGroup 15498 1 [aux_sym_ppUsesBlock_token3]; SGroup 1231 1 [sym__ppEndIf];
     SGroup 2857 1 [sym__ppIf]; SGroup 2906 1 [aux_sym__procAttributesPp_repeat1];
     SGroup 3321 1 [sym__ppElse]; SGroup 4086 1 [sym__procAttributesPp];
     SGroup 11551 1 [sym_procAttribute]; SGroup 11835 1 [aux_sym__procAttributesPp_repeat2];
     AGroup 3 2 syms_5; AGroup 15335 39 syms_33]);
   (17270, 5, [AGroup 5 1 [sym_ppDirective]; AGroup 3 2 syms_5; AGroup 15504 4 syms_25;
     AGroup 15403 5 syms_40; AGroup 15502 46 syms_26]);
   (17339, 17, [AGroup 5 1 [sym_ppDirective]; AGroup 11641 1 [sym_kDispId]; AGroup 11643 1 [sym_kPublic];
     AGroup 11645 1 [sym_kMessage]; AGroup 11647 1 [sym_kDeprecated];
     AGroup 11649 1 [sym_kExport]; AGroup 11651 1 [sym_kAlias];
     AGroup 15329 1 [aux_sym_ppUsesBlock_token1]; AGroup 15552 1 [anon_sym_LBRACK];
     SGroup 2862 1 [sym__ppIf]; SGroup 2927 1 [aux_sym__declProc_repeat1];
     SGroup 3880 1 [sym__procAttributeNoExt]; SGroup 3961 1 [sym__procAttributesPp];
     SGroup 14297 1 [sym_procAttribute]; AGroup 3 2 syms_5; AGroup 5825 2 syms_44;
     AGroup 1016 39 syms_33]);
   (17431, 17, [AGroup 5 1 [sym_ppDirective]; AGroup 11641 1 [sym_kDispId]; AGroup 11643 1 [sym_kPublic];
     AGroup 11645 1 [sym_kMessage]; AGroup 11647 1 [sym_kDeprecated];
     AGroup 11649 1 [sym_kExport]; AGroup 11651 1 [sym_kAlias];
     AGroup 15329 1 [aux_sym_ppUsesBlock_token1]; AGroup 15552 1 [anon_sym_LBRACK];
     SGroup 2862 1 [sym__ppIf]; SGroup 3037 1 [aux_sym__declProc_repeat1];
     SGroup 3880 1 [sym__procAttributeNoExt]; SGroup 3961 1 [sym__procAttributesPp];
     SGroup 14297 1 [sym_procAttribute]; AGroup 3 2 syms_5; AGroup 5533 2 syms_44;
     AGroup 1016 39 syms_33]);
   (17523, 17, [AGroup 5 1 [sym_ppDirective]; AGroup 11641 1 [sym_kDispId]; AGroup 11643 1 [sym_kPublic];
     AGroup 11645 1 [sym_kMessage]; AGroup 11647 1 [sym_kDeprecated];
     AGroup 11649 1 [sym_kExport]; AGroup 11651 1 [sym_kAlias];
     AGroup 15329 1 [aux_sym_ppUsesBlock_token1]; AGroup 15552 1 [anon_sym_LBRACK];
     SGroup 2862 1 [sym__ppIf]; SGroup 2946 1 [aux_sym__declProc_repeat1];
     SGroup 3880 1 [sym__procAttributeNoExt]; SGroup 3961 1 [sym__procAttributesPp];
     SGroup 14297 1 [sym_procAttribute]; AGroup 3 2 syms_5; AGroup 6321 2 syms_44;
     AGroup 1016 39 syms_33]);
   (17615, 17, [AGroup 5 1 [sym_ppDirective]; AGroup 11641 1 [sym_kDispId]; AGroup 11643 1 [sym_kPublic];
     AGroup 11645 1 [sym_kMessage]; AGroup 11647 1 [sym_kDeprecated];
     AGroup 11649 1 [sym_kExport]; AGroup 11651 1 [sym_kAlias];
     AGroup 15329 1 [aux_sym_ppUsesBlock_token1]; AGroup 15552 1 [anon_sym_LBRACK];
     SGroup 2862 1 [sym__ppIf]; SGroup 2948 1 [aux_sym__declProc_repeat1];
     SGroup 3880 1 [sym__procAttributeNoExt]; SGroup 3961 1 [sym__procAttributesPp];
     SGroup 14297 1 [sym_procAttribute]; AGroup 3 2 syms_5; AGroup 6355 2 syms_44;
     AGroup 1016 39 syms_33]);
   (17707, 17, [AGroup 5 1 [sym_ppDirective]; AGroup 11641 1 [sym_kDispId]; AGroup 11643 1 [sym_kPublic];
     AGroup 11645 1 [sym_kMessage]; AGroup 11647 1 [sym_kDeprecated];
     AGroup 11649 1 [sym_kExport]; AGroup 11651 1 [sym_kAlias];
     AGroup 15329 1 [aux_sym_ppUsesBlock_token1]; AGroup 15552 1 [anon_sym_LBRACK];
     SGroup 2862 1 [sym__ppIf]; SGroup 3037 1 [aux_sym__declProc_repeat1];
     SGroup 3880 1 [sym__procAttributeNoExt]; SGroup 3961 1 [sym__procAttributesPp];
     SGroup 14297 1 [sym_procAttribute]; AGroup 3 2 syms_5; AGroup 5277 2 syms_44;
     AGroup 1016 39 syms_33]);
   (17799, 17, [AGroup 5 1 [sym_ppDirective]; AGroup 11641 1 [sym_kDispId]; AGroup 11643 1 [sym_kPublic];
     AGroup 11645 1 [sym_kMessage]; AGroup 11647 1 [sym_kDeprecated];
     AGroup 11649 1 [sym_kExport]; AGroup 11651 1 [sym_kAlias];
     AGroup 15329 1 [aux_sym_ppUsesBlock_token1]; AGroup 15552 1 [anon_sym_LBRACK];
     SGroup 2862 1 [sym__ppIf]; SGroup 3034 1 [aux_sym__declProc_repeat1];
     SGroup 3880 1 [sym__procAttributeNoExt]; SGroup 3961 1 [sym__procAttributesPp];
     SGroup 14297 1 [sym_procAttribute]; AGroup 3 2 syms_5; AGroup 2101 2 syms_44;
     AGroup 1016 39 syms_33]);
   (17891, 17, [AGroup 5 1 [sym_ppDirective]; AGroup 11641 1 [sym_kDispId]; AGroup 11643 1 [sym_kPublic];
     AGroup 11645 1 [sym_kMessage]; AGroup 11647 1 [sym_kDeprecated];
     AGroup 11649 1 [sym_kExport]; AGroup 11651 1 [sym_kAlias];
     AGroup 15329 1 [aux_sym_ppUsesBlock_token1]; AGroup 15552 1 [anon_sym_LBRACK];
     SGroup 2862 1 [sym__ppIf]; SGroup 3037 1 [aux_sym__declProc_repeat1];
     SGroup 3880 1 [sym__procAttributeNoExt]; SGroup 3961 1 [sym__procAttributesPp];
     SGroup 14297 1 [sym_procAttribute]; AGroup 3 2 syms_5; AGroup 2841 2 syms_44;
     AGroup 1016 39 syms_33]);
   (17983, 17, [AGroup 5 1 [sym_ppDirective]; AGroup 11641 1 [sym_kDispId]; AGroup 11643 1 [sym_kPublic];
     AGroup 11645 1 [sym_kMessage]; AGroup 11647 1 [sym_kDeprecated];
     AGroup 11649 1 [sym_kExport]; AGroup 11651 1 [sym_kAlias];
     AGroup 15329 1 [aux_sym_ppUsesBlock_token1]; AGroup 15552 1 [anon_sym_LBRACK];
     SGroup 2862 1 [sym__ppIf]; SGroup 3037 1 [aux_sym__declProc_repeat1];
     SGroup 3880 1 [sym__procAttributeNoExt]; SGroup 3961 1 [sym__procAttributesPp];
     SGroup 14297 1 [sym_procAttribute]; AGroup 3 2 syms_5; AGroup 2874 2 syms_44;
     AGroup 1016 39 syms_33]);
   (18075, 17, [AGroup 5 1 [sym_ppDirective]; AGroup 11641 1 [sym_kDispId]; AGroup 11643 1 [sym_kPublic];
     AGroup 11645 1 [sym_kMessage]; AGroup 11647 1 [sym_kDeprecated];
     AGroup 11649 1 [sym_kExport]; AGroup 11651 1 [sym_kAlias];
     AGroup 15329 1 [aux_sym_ppUsesBlock_token1]; AGroup 15552 1 [anon_sym_LBRACK];
     SGroup 2862 1 [sym__ppIf]; SGroup 3001 1 [aux_sym__declProc_repeat1];
     SGroup 3880 1 [sym__procAttributeNoExt]; SGroup 3961 1 [sym__procAttributesPp];
     SGroup 14297 1 [sym_procAttribute]; AGroup 3 2 syms_5; AGroup 5567 2 syms_44;
     AGroup 1016 39 syms_33]);
   (18167, 17, [AGroup 5 1 [sym_ppDirective]; AGroup 11641 1 [sym_kDispId]; AGroup 11643 1 [sym_kPublic];
     AGroup 11645 1 [sym_kMessage]; AGroup 11647 1 [sym_kDeprecated];
     AGroup 11649 1 [sym_kExport]; AGroup 11651 1 [sym_kAlias];
     AGroup 15329 1 [aux_sym_ppUsesBlock_token1]; AGroup 15552 1 [anon_sym_LBRACK];
     SGroup 2862 1 [sym__ppIf]; SGroup 2992 1 [aux_sym__declProc_repeat1];
     SGroup 3880 1 [sym__procAttributeNoExt]; SGroup 3961 1 [sym__procAttributesPp];
     SGroup 14297 1 [sym_procAttribute]; AGroup 3 2 syms_5; AGroup 7319 2 syms_44;
     AGroup 1016 39 syms_33]);
   (18259, 17, [AGroup 5 1 [sym_ppDirective]; AGroup 11641 1 [sym_kDispId]; AGroup 11643 1 [sym_kPublic];
     AGroup 11645 1 [sym_kMessage]; AGroup 11647 1 [sym_kDeprecated];
     AGroup 11649 1 [sym_kExport]; AGroup 11651 1 [sym_kAlias];
     AGroup 15329 1 [aux_sym_ppUsesBlock_token1]; AGroup 15552 1 [anon_sym_LBRACK];
     SGroup 2862 1 [sym__ppIf]; SGroup 2979 1 [aux_sym__declProc_repeat1];
     SGroup 3880 1 [sym__procAttributeNoExt]; SGroup 3961 1 [sym__procAttributesPp];
     SGroup 14297 1 [sym_procAttribute]; AGroup 3 2 syms_5; AGroup 2907 2 syms_44;
     AGroup 1016 39 syms_33]);
   (18351, 17, [AGroup 5 1 [sym_ppDirective]; AGroup 11641 1 [sym_kDispId]; AGroup 11643 1 [sym_kPublic];
     AGroup 11645 1 [sym_kMessage]; AGroup 11647 1 [sym_kDeprecated];
     AGroup 11649 1 [sym_kExport]; AGroup 11651 1 [sym_kAlias];
     AGroup 15329 1 [aux_sym_ppUsesBlock_token1]; AGroup 15552 1 [anon_sym_LBRACK];
     SGroup 2862 1 [sym__ppIf]; SGroup 3037 1 [aux_sym__declProc_repeat1];
     SGroup 3880 1 [sym__procAttributeNoExt]; SGroup 3961 1 [sym__procAttributesPp];
     SGroup 14297 1 [sym_procAttribute]; AGroup 3 2 syms_5; AGroup 4634 2 syms_44;
     AGroup 1016 39 syms_33]);
   (18443, 17, [AGroup 5 1 [sym_ppDirective]; AGroup 11641 1 [sym_kDispId]; AGroup 11643 1 [sym_kPublic];
     AGroup 11645 1 [sym_kMessage]; AGroup 11647 1 [sym_kDeprecated];
     AGroup 11649 1 [sym_kExport]; AGroup 11651 1 [sym_kAlias];
     AGroup 15329 1 [aux_sym_ppUsesBlock_token1]; AGroup 15552 1 [anon_sym_LBRACK];
     SGroup 2862 1 [sym__ppIf]; SGroup 3037 1 [aux_sym__declProc_repeat1];
     SGroup 3880 1 [sym__procAttributeNoExt]; SGroup 3961 1 [sym__procAttributesPp];
     SGroup 14297 1 [sym_procAttribute]; AGroup 3 2 syms_5; AGroup 6069 2 syms_44;
     AGroup 1016 39 syms_33]);
   (18535, 17, [AGroup 5 1 [sym_ppDirective]; AGroup 11641 1 [sym_kDispId]; AGroup 11643 1 [sym_kPublic];
     AGroup 11645 1 [sym_kMessage]; AGroup 11647 1 [sym_kDeprecated];
     AGroup 11649 1 [sym_kExport]; AGroup 11651 1 [sym_kAlias];
     AGroup 15329 1 [aux_sym_ppUsesBlock_token1]; AGroup 15552 1 [anon_sym_LBRACK];
     SGroup 2862 1 [sym__ppIf]; SGroup 3037 1 [aux_sym__declProc_repeat1];
     SGroup 3880 1 [sym__procAttributeNoExt]; SGroup 3961 1 [sym__procAttributesPp];
     SGroup 14297 1 [sym_procAttribute]; AGroup 3 2 syms_5; AGroup 6134 2 syms_44;
     AGroup 1016 39 syms_33]);
   (18627, 17, [AGroup 5 1 [sym_ppDirective]; AGroup 11641 1 [sym_kDispId]; AGroup 11643 1 [sym_kPublic];
     AGroup 11645 1 [sym_kMessage]; AGroup 11647 1 [sym_kDeprecated];
     AGroup 11649 1 [sym_kExport]; AGroup 11651 1 [sym_kAlias];
     AGroup 15329 1 [aux_sym_ppUsesBlock_token1]; AGroup 15552 1 [anon_sym_LBRACK];
     SGroup 2862 1 [sym__ppIf]; SGroup 2994 1 [aux_sym__declProc_repeat1];
     SGroup 3880 1 [sym__procAttributeNoExt]; SGroup 3961 1 [sym__procAttributesPp];
     SGroup 14297 1 [sym_procAttribute]; AGroup 3 2 syms_5; AGroup 6249 2 syms_44;
     AGroup 1016 39 syms_33]);
   (18719, 17, [AGroup 5 1 [sym_ppDirective]; AGroup 11641 1 [sym_kDispId]; AGroup 11643 1 [sym_kPublic];
     AGroup 11645 1 [sym_kMessage]; AGroup 11647 1 [sym_kDeprecated];
     AGroup 11649 1 [sym_kExport]; AGroup 11651 1 [sym_kAlias];
     AGroup 15329 1 [aux_sym_ppUsesBlock_token1]; AGroup 15552 1 [anon_sym_LBRACK];
     SGroup 2862 1 [sym__ppIf]; SGroup 3037 1 [aux_sym__declProc_repeat1];
     SGroup 3880 1 [sym__procAttributeNoExt]; SGroup 3961 1 [sym__procAttributesPp];
     SGroup 14297 1 [sym_procAttribute]; AGroup 3 2 syms_5; AGroup 6287 2 syms_44;
     AGroup 1016 39 syms_33]);
   (18811, 17, [AGroup 5 1 [sym_ppDirective]; AGroup 11641 1 [sym_kDispId]; AGroup 11643 1 [sym_kPublic];
     AGroup 11645 1 [sym_kMessage]; AGroup 11647 1 [sym_kDeprecated];
     AGroup 11649 1 [sym_kExport]; AGroup 11651 1 [sym_kAlias];
     AGroup 15329 1 [aux_sym_ppUsesBlock_token1]; AGroup 15552 1 [anon_sym_LBRACK];
     SGroup 2862 1 [sym__ppIf]; SGroup 3039 1 [aux_sym__declProc_repeat1];
     SGroup 3880 1 [sym__procAttributeNoExt]; SGroup 3961 1 [sym__procAttributesPp];
     SGroup 14297 1 [sym_procAttribute]; AGroup 3 2 syms_5; AGroup 5339 2 syms_44;
     AGroup 1016 39 syms_33]);
   (18903, 17, [AGroup 5 1 [sym_ppDirective]; AGroup 11641 1 [sym_kDispId]; AGroup 11643 1 [sym_kPublic];
     AGroup 11645 1 [sym_kMessage]; AGroup 11647 1 [sym_kDeprecated];
     AGroup 11649 1 [sym_kExport]; AGroup 11651 1 [sym_kAlias];
     AGroup 15329 1 [aux_sym_ppUsesBlock_token1]; AGroup 15552 1 [anon_sym_LBRACK];
     SGroup 2862 1 [sym__ppIf]; SGroup 3037 1 [aux_sym__declProc_repeat1];
     SGroup 3880 1 [sym__procAttributeNoExt]; SGroup 3961 1 [sym__procAttributesPp];
     SGroup 14297 1 [sym_procAttribute]; AGroup 3 2 syms_5; AGroup 5401 2 syms_44;
     AGroup 1016 39 syms_33]);
   (18995, 17, [AGroup 5 1 [sym_ppDirective]; AGroup 11641 1 [sym_kDispId]; AGroup 11643 1 [sym_kPublic];
     AGroup 11645 1 [sym_kMessage]; AGroup 11647 1 [sym_kDeprecated];
     AGroup 11649 1 [sym_kExport]; AGroup 11651 1 [sym_kAlias];
     AGroup 15329 1 [aux_sym_ppUsesBlock_token1]; AGroup 15552 1 [anon_sym_LBRACK];
     SGroup 2862 1 [sym__ppIf]; SGroup 2974 1 [aux_sym__declProc_repeat1];
     SGroup 3880 1 [sym__procAttributeNoExt]; SGroup 3961 1 [sym__procAttributesPp];
     SGroup 14297 1 [sym_procAttribute]; AGroup 3 2 syms_5; AGroup 5432 2 syms_44;
     AGroup 1016 39 syms_33]);
   (19087, 17, [AGroup 5 1 [sym_ppDirective]; AGroup 11641 1 [sym_kDispId]; AGroup 11643 1 [sym_kPublic];
     AGroup 11645 1 [sym_kMessage]; AGroup 11647 1 [sym_kDeprecated];
     AGroup 11649 1 [sym_kExport]; AGroup 11651 1 [sym_kAlias];
     AGroup 15329 1 [aux_sym_ppUsesBlock_token1]; AGroup 15552 1 [anon_sym_LBRACK];
     SGroup 2862 1 [sym__ppIf]; SGroup 3037 1 [aux_sym__declProc_repeat1];
     SGroup 3880 1 [sym__procAttributeNoExt]; SGroup 3961 1 [sym__procAttributesPp];
     SGroup 14297 1 [sym_procAttribute]; AGroup 3 2 syms_5; AGroup 1791 2 syms_44;
     AGroup 1016 39 syms_33]);
   (19179, 17, [AGroup 5 1 [sym_ppDirective]; AGroup 11641 1 [sym_kDispId]; AGroup 11643 1 [sym_kPublic];
     AGroup 11645 1 [sym_kMessage]; AGroup 11647 1 [sym_kDeprecated];
     AGroup 11649 1 [sym_kExport]; AGroup 11651 1 [sym_kAlias];
     AGroup 15329 1 [aux_sym_ppUsesBlock_token1]; AGroup 15552 1 [anon_sym_LBRACK];
     SGroup 2862 1 [sym__ppIf]; SGroup 3037 1 [aux_sym__declProc_repeat1];
     SGroup 3880 1 [sym__procAttributeNoExt]; SGroup 3961 1 [sym__procAttributesPp];
     SGroup 14297 1 [sym_procAttribute]; AGroup 3 2 syms_5; AGroup 5691 2 syms_44;
     AGroup 1016 39 syms_33]);
   (19271, 17, [AGroup 5 1 [sym_ppDirective]; AGroup 11641 1 [sym_kDispId]; AGroup 11643 1 [sym_kPublic];
     AGroup 11645 1 [sym_kMessage]; AGroup 11647 1 [sym_kDeprecated];
     AGroup 11649 1 [sym_kExport]; AGroup 11651 1 [sym_kAlias];
     AGroup 15329 1 [aux_sym_ppUsesBlock_token1]; AGroup 15552 1 [anon_sym_LBRACK];
     SGroup 2862 1 [sym__ppIf]; SGroup 2951 1 [aux_sym__declProc_repeat1];
     SGroup 3880 1 [sym__procAttributeNoExt]; SGroup 3961 1 [sym__procAttributesPp];
     SGroup 14297 1 [sym_procAttribute]; AGroup 3 2 syms_5; AGroup 6553 2 syms_44;
     AGroup 1016 39 syms_33]);
   (19363, 17, [AGroup 5 1 [sym_ppDirective]; AGroup 11641 1 [sym_kDispId]; AGroup 11643 1 [sym_kPublic];
     AGroup 11645 1 [sym_kMessage]; AGroup 11647 1 [sym_kDeprecated];
     AGroup 11649 1 [sym_kExport]; AGroup 11651 1 [sym_kAlias];
     AGroup 15329 1 [aux_sym_ppUsesBlock_token1]; AGroup 15552 1 [anon_sym_LBRACK];
     SGroup 2862 1 [sym__ppIf]; SGroup 2987 1 [aux_sym__declProc_repeat1];
     SGroup 3880 1 [sym__procAttributeNoExt]; SGroup 3961 1 [sym__procAttributesPp];
     SGroup 14297 1 [sym_procAttribute]; AGroup 3 2 syms_5; AGroup 1836 2 syms_44;
     AGroup 1016 39 syms_33]);
   (19455, 17, [AGroup 5 1 [sym_ppDirective]; AGroup 11641 1 [sym_kDispId]; AGroup 11643 1 [sym_kPublic];
     AGroup 11645 1 [sym_kMessage]; AGroup 11647 1 [sym_kDeprecated];
     AGroup 11649 1 [sym_kExport]; AGroup 11651 1 [sym_kAlias];
     AGroup 15329 1 [aux_sym_ppUsesBlock_token1]; AGroup 15552 1 [anon_sym_LBRACK];
     SGroup 2862 1 [sym__ppIf]; SGroup 3037 1 [aux_sym__declProc_repeat1];
     SGroup 3880 1 [sym__procAttributeNoExt]; SGroup 3961 1 [sym__procAttributesPp];
     SGroup 14297 1 [sym_procAttribute]; AGroup 3 2 syms_5; AGroup 6705 2 syms_44;
     AGroup 1016 39 syms_33]);
   (19547, 17, [AGroup 5 1 [sym_ppDirective]; AGroup 11641 1 [sym_kDispId]; AGroup 11643 1 [sym_kPublic];
     AGroup 11645 1 [sym_kMessage]; AGroup 11647 1 [sym_kDeprecated];
     AGroup 11649 1 [sym_kExport]; AGroup 11651 1 [sym_kAlias];
     AGroup 15329 1 [aux_sym_ppUsesBlock_token1]; AGroup 15552 1 [anon_sym_LBRACK];
     SGroup 2862 1 [sym__ppIf]; SGroup 3037 1 [aux_sym__declProc_repeat1];
     SGroup 3880 1 [sym__procAttributeNoExt]; SGroup 3961 1 [sym__procAttributesPp];
     SGroup 14297 1 [sym_procAttribute]; AGroup 3 2 syms_5; AGroup 4337 2 syms_44;
     AGroup 1016 39 syms_33]);
   (19639, 17, [AGroup 5 1 [sym_ppDirective]; AGroup 11641 1 [sym_kDispId]; AGroup 11643 1 [sym_kPublic];
     AGroup 11645 1 [sym_kMessage]; AGroup 11647 1 [sym_kDeprecated];
     AGroup 11649 1 [sym_kExport]; AGroup 11651 1 [sym_kAlias];
     AGroup 15329 1 [aux_sym_ppUsesBlock_token1]; AGroup 15552 1 [anon_sym_LBRACK];
     SGroup 2862 1 [sym__ppIf]; SGroup 3037 1 [aux_sym__declProc_repeat1];
     SGroup 3880 1 [sym__procAttributeNoExt]; SGroup 3961 1 [sym__procAttributesPp];
     SGroup 14297 1 [sym_procAttribute]; AGroup 3 2 syms_5; AGroup 6491 2 syms_44;
     AGroup 1016 39 syms_33]);
   (19731, 17, [AGroup 5 1 [sym_ppDirective]; AGroup 11641 1 [sym_kDispId]; AGroup 11643 1 [sym_kPublic];
     AGroup 11645 1 [sym_kMessage]; AGroup 11647 1 [sym_kDeprecated];
     AGroup 11649 1 [sym_kExport]; AGroup 11651 1 [sym_kAlias];
     AGroup 15329 1 [aux_sym_ppUsesBlock_token1]; AGroup 15552 1 [anon_sym_LBRACK];
     SGroup 2862 1 [sym__ppIf]; SGroup 2934 1 [aux_sym__declProc_repeat1];
     SGroup 3880 1 [sym__procAttributeNoExt]; SGroup 3961 1 [sym__procAttributesPp];
     SGroup 14297 1 [sym_procAttribute]; AGroup 3 2 syms_5; AGroup 7279 2 syms_44;
     AGroup 1016 39 syms_33]);
   (19823, 17, [AGroup 5 1 [sym_ppDirective]; AGroup 11641 1 [sym_kDispId]; AGroup 11643 1 [sym_kPublic];
     AGroup 11645 1 [sym_kMessage]; AGroup 11647 1 [sym_kDeprecated];
     AGroup 11649 1 [sym_kExport]; AGroup 11651 1 [sym_kAlias];
     AGroup 15329 1 [aux_sym_ppUsesBlock_token1]; AGroup 15552 1 [anon_sym_LBRACK];
     SGroup 2862 1 [sym__ppIf]; SGroup 3037 1 [aux_sym__declProc_repeat1];
     SGroup 3880 1 [sym__procAttributeNoExt]; SGroup 3961 1 [sym__procAttributesPp];
     SGroup 14297 1 [sym_procAttribute]; AGroup 3 2 syms_5; AGroup 6646 2 syms_44;
     AGroup 1016 39 syms_33]);
   (19915, 17, [AGroup 5 1 [sym_ppDirective]; AGroup 11641 1 [sym_kDispId]; AGroup 11643 1 [sym_kPublic];
     AGroup 11645 1 [sym_kMessage]; AGroup 11647 1 [sym_kDeprecated];
     AGroup 11649 1 [sym_kExport]; AGroup 11651 1 [sym_kAlias];
     AGroup 15329 1 [aux_sym_ppUsesBlock_token1]; AGroup 15552 1 [anon_sym_LBRACK];
     SGroup 2862 1 [sym__ppIf]; SGroup 3037 1 [aux_sym__declProc_repeat1];
     SGroup 3880 1 [sym__procAttributeNoExt]; SGroup 3961 1 [sym__procAttributesPp];
     SGroup 14297 1 [sym_procAttribute]; AGroup 3 2 syms_5; AGroup 4938 2 syms_44;
     AGroup 1016 39 syms_33]);
   (20007, 17, [AGroup 5 1 [sym_ppDirective]; AGroup 11641 1 [sym_kDispId]; AGroup 11643 1 [sym_kPublic];
     AGroup 11645 1 [sym_kMessage]; AGroup 11647 1 [sym_kDeprecated];
     AGroup 11649 1 [sym_kExport]; AGroup 11651 1 [sym_kAlias];
     AGroup 15329 1 [aux_sym_ppUsesBlock_token1]; AGroup 15552 1 [anon_sym_LBRACK];
     SGroup 2862 1 [sym__ppIf]; SGroup 3003 1 [aux_sym__declProc_repeat1];
     SGroup 3880 1 [sym__procAttributeNoExt]; SGroup 3961 1 [sym__procAttributesPp];
     SGroup 14297 1 [sym_procAttribute]; AGroup 3 2 syms_5; AGroup 5502 2 syms_44;
     AGroup 1016 39 syms_33]);
   (20099, 17, [AGroup 5 1 [sym_ppDirective]; AGroup 11641 1 [sym_kDispId]; AGroup 11643 1 [sym_kPublic];
     AGroup 11645 1 [sym_kMessage]; AGroup 11647 1 [sym_kDeprecated];
     AGroup 11649 1 [sym_kExport]; AGroup 11651 1 [sym_kAlias];
     AGroup 15329 1 [aux_sym_ppUsesBlock_token1]; AGroup 15552 1 [anon_sym_LBRACK];
     SGroup 2862 1 [sym__ppIf]; SGroup 3002 1 [aux_sym__declProc_repeat1];
     SGroup 3880 1 [sym__procAttributeNoExt]; SGroup 3961 1 [sym__procAttributesPp];
     SGroup 14297 1 [sym_procAttribute]; AGroup 3 2 syms_5; AGroup 4406 2 syms_44;
     AGroup 1016 39 syms_33]);
   (20191, 22, [AGroup 5 1 [sym_ppDirective]; AGroup 15554 1 [anon_sym_SEMI];
     AGroup 15556 1 [anon_sym_LBRACK]; AGroup 15558 1 [anon_sym_LPAREN];
     AGroup 15562 1 [anon_sym_POUND]; AGroup 15574 1 [sym_kSpecialize]; AGroup 15580 1 [sym_kIf];
     AGroup 15582 1 [sym_kInherited]; AGroup 15584 1 [sym_kString]; AGroup 3 2 syms_5;
     AGroup 15560 2 syms_6; AGroup 15564 2 syms_7; AGroup 15566 2 syms_8; AGroup 15568 2 syms_9;
     AGroup 15570 2 syms_10; AGroup 15578 2 syms_11; SGroup 7416 2 syms_12;
     SGroup 6479 3 syms_13; SGroup 7846 4 syms_14; AGroup 15572 5 syms_15;
     AGroup 15576 6 syms_45; SGroup 7271 14 syms_17]);
   (20293, 5, [AGroup 5 1 [sym_ppDirective]; AGroup 3 2 syms_5; AGroup 15484 7 syms_34;
     AGroup 15403 18 syms_36; AGroup 15482 29 syms_46]);
   (20361, 17, [AGroup 5 1 [sym_ppDirective]; AGroup 11641 1 [sym_kDispId]; AGroup 11643 1 [sym_kPublic];
     AGroup 11645 1 [sym_kMessage]; AGroup 11647 1 [sym_kDeprecated];
     AGroup 11649 1 [sym_kExport]; AGroup 11651 1 [sym_kAlias];
     AGroup 15329 1 [aux_sym_ppUsesBlock_token1]; AGroup 15552 1 [anon_sym_LBRACK];
     SGroup 2862 1 [sym__ppIf]; SGroup 3037 1 [aux_sym__declProc_repeat1];
     SGroup 3880 1 [sym__procAttributeNoExt]; SGroup 3961 1 [sym__procAttributesPp];
     SGroup 14297 1 [sym_procAttribute]; AGroup 3 2 syms_5; AGroup 2968 2 syms_44;
     AGroup 1016 39 syms_33]);
   (20453, 17, [AGroup 5 1 [sym_ppDirective]; AGroup 11641 1 [sym_kDispId]; AGroup 11643 1 [sym_kPublic];
     AGroup 11645 1 [sym_kMessage]; AGroup 11647 1 [sym_kDeprecated];
     AGroup 11649 1 [sym_kExport]; AGroup 11651 1 [sym_kAlias];
     AGroup 15329 1 [aux_sym_ppUsesBlock_token1]; AGroup 15552 1 [anon_sym_LBRACK];
     SGroup 2862 1 [sym__ppIf]; SGroup 2996 1 [aux_sym__declProc_repeat1];
     SGroup 3880 1 [sym__procAttributeNoExt]; SGroup 3961 1 [sym__procAttributesPp];
     SGroup 14297 1 [sym_procAttribute]; AGroup 3 2 syms_5; AGroup 3001 2 syms_44;
     AGroup 1016 39 syms_33]);
   (20545, 17, [AGroup 5 1 [sym_ppDirective]; AGroup 11641 1 [sym_kDispId]; AGroup 11643 1 [sym_kPublic];
     AGroup 11645 1 [sym_kMessage]; AGroup 11647 1 [sym_kDeprecated];
     AGroup 11649 1 [sym_kExport]; AGroup 11651 1 [sym_kAlias];
     AGroup 15329 1 [aux_sym_ppUsesBlock_token1]; AGroup 15552 1 [anon_sym_LBRACK];
     SGroup 2862 1 [sym__ppIf]; SGroup 2997 1 [aux_sym__declProc_repeat1];
     SGroup 3880 1 [sym__procAttributeNoExt]; SGroup 3961 1 [sym__procAttributesPp];
     SGroup 14297 1 [sym_procAttribute]; AGroup 3 2 syms_5; AGroup 3034 2 syms_44;
     AGroup 1016 39 syms_33])
  ].

(** States 2959 to 3058. *)
Definition small_runs_2959 : list small_run :=
  [
   (20637, 21, [AGroup 5 1 [sym_ppDirective]; AGroup 927 1 [anon_sym_LBRACK];
     AGroup 929 1 [anon_sym_LPAREN]; AGroup 933 1 [anon_sym_POUND];
     AGroup 949 1 [sym_kSpecialize]; AGroup 967 1 [sym_kInherited]; AGroup 973 1 [sym_kString];
     AGroup 15586 1 [sym_kIf]; AGroup 3 2 syms_5; AGroup 931 2 syms_6; AGroup 935 2 syms_7;
     AGroup 937 2 syms_8; AGroup 939 2 syms_9; AGroup 941 2 syms_10; AGroup 961 2 syms_11;
     SGroup 7570 2 syms_12; SGroup 6915 3 syms_13; SGroup 8028 4 syms_14; AGroup 943 5 syms_15;
     AGroup 14747 7 syms_47; SGroup 7533 14 syms_17]);
   (20737, 17, [AGroup 5 1 [sym_ppDirective]; AGroup 11641 1 [sym_kDispId]; AGroup 11643 1 [sym_kPublic];
     AGroup 11645 1 [sym_kMessage]; AGroup 11647 1 [sym_kDeprecated];
     AGroup 11649 1 [sym_kExport]; AGroup 11651 1 [sym_kAlias];
     AGroup 15329 1 [aux_sym_ppUsesBlock_token1]; AGroup 15552 1 [anon_sym_LBRACK];
     SGroup 2862 1 [sym__ppIf]; SGroup 3037 1 [aux_sym__declProc_repeat1];
     SGroup 3880 1 [sym__procAttributeNoExt]; SGroup 3961 1 [sym__procAttributesPp];
     SGroup 14297 1 [sym_procAttribute]; AGroup 3 2 syms_5; AGroup 3067 2 syms_44;
     AGroup 1016 39 syms_33]);
   (20829, 17, [AGroup 5 1 [sym_ppDirective]; AGroup 11641 1 [sym_kDispId]; AGroup 11643 1 [sym_kPublic];
     AGroup 11645 1 [sym_kMessage]; AGroup 11647 1 [sym_kDeprecated];
     AGroup 11649 1 [sym_kExport]; AGroup 11651 1 [sym_kAlias];
     AGroup 15329 1 [aux_sym_ppUsesBlock_token1]; AGroup 15552 1 [anon_sym_LBRACK];
     SGroup 2862 1 [sym__ppIf]; SGroup 3037 1 [aux_sym__declProc_repeat1];
     SGroup 3880 1 [sym__procAttributeNoExt]; SGroup 3961 1 [sym__procAttributesPp];
     SGroup 14297 1 [sym_procAttribute]; AGroup 3 2 syms_5; AGroup 3100 2 syms_44;
     AGroup 1016 39 syms_33]);
   (20921, 17, [AGroup 5 1 [sym_ppDirective]; AGroup 11641 1 [sym_kDispId]; AGroup 11643 1 [sym_kPublic];
     AGroup 11645 1 [sym_kMessage]; AGroup 11647 1 [sym_kDeprecated];
     AGroup 11649 1 [sym_kExport]; AGroup 11651 1 [sym_kAlias];
     AGroup 15329 1 [aux_sym_ppUsesBlock_token1]; AGroup 15552 1 [anon_sym_LBRACK];
     SGroup 2862 1 [sym__ppIf]; SGroup 3010 1 [aux_sym__declProc_repeat1];
     SGroup 3880 1 [sym__procAttributeNoExt]; SGroup 3961 1 [sym__procAttributesPp];
     SGroup 14297 1 [sym_procAttribute]; AGroup 3 2 syms_5; AGroup 4702 2 syms_44;
     AGroup 1016 39 syms_33]);
   (21013, 21, [AGroup 5 1 [sym_ppDirective]; AGroup 9986 1 [anon_sym_LBRACK];
     AGroup 9988 1 [anon_sym_LPAREN]; AGroup 9992 1 [anon_sym_POUND];
     AGroup 10008 1 [sym_kSpecialize]; AGroup 10026 1 [sym_kInherited];
     AGroup 10032 1 [sym_kString]; AGroup 15588 1 [sym_kIf]; AGroup 3 2 syms_5;
     AGroup 9990 2 syms_6; AGroup 9994 2 syms_7; AGroup 9996 2 syms_8; AGroup 9998 2 syms_9;
     AGroup 10000 2 syms_10; AGroup 10020 2 syms_11; SGroup 7660 2 syms_12;
     SGroup 6967 3 syms_13; SGroup 8138 4 syms_14; AGroup 10002 5 syms_15;
     AGroup 14765 7 syms_48; SGroup 7363 14 syms_17]);
   (21113, 17, [AGroup 5 1 [sym_ppDirective]; AGroup 11641 1 [sym_kDispId]; AGroup 11643 1 [sym_kPublic];
     AGroup 11645 1 [sym_kMessage]; AGroup 11647 1 [sym_kDeprecated];
     AGroup 11649 1 [sym_kExport]; AGroup 11651 1 [sym_kAlias];
     AGroup 15329 1 [aux_sym_ppUsesBlock_token1]; AGroup 15552 1 [anon_sym_LBRACK];
     SGroup 2862 1 [sym__ppIf]; SGroup 3037 1 [aux_sym__declProc_repeat1];
     SGroup 3880 1 [sym__procAttributeNoExt]; SGroup 3961 1 [sym__procAttributesPp];
     SGroup 14297 1 [sym_procAttribute]; AGroup 3 2 syms_5; AGroup 3133 2 syms_44;
     AGroup 1016 39 syms_33]);
   (21205, 17, [AGroup 5 1 [sym_ppDirective]; AGroup 11641 1 [sym_kDispId]; AGroup 11643 1 [sym_kPublic];
     AGroup 11645 1 [sym_kMessage]; AGroup 11647 1 [sym_kDeprecated];
     AGroup 11649 1 [sym_kExport]; AGroup 11651 1 [sym_kAlias];
     AGroup 15329 1 [aux_sym_ppUsesBlock_token1]; AGroup 15552 1 [anon_sym_LBRACK];
     SGroup 2862 1 [sym__ppIf]; SGroup 2999 1 [aux_sym__declProc_repeat1];
     SGroup 3880 1 [sym__procAttributeNoExt]; SGroup 3961 1 [sym__procAttributesPp];
     SGroup 14297 1 [sym_procAttribute]; AGroup 3 2 syms_5; AGroup 2204 2 syms_44;
     AGroup 1016 39 syms_33]);
   (21297, 17, [AGroup 5 1 [sym_ppDirective]; AGroup 11641 1 [sym_kDispId]; AGroup 11643 1 [sym_kPublic];
     AGroup 11645 1 [sym_kMessage]; AGroup 11647 1 [sym_kDeprecated];
     AGroup 11649 1 [sym_kExport]; AGroup 11651 1 [sym_kAlias];
     AGroup 15329 1 [aux_sym_ppUsesBlock_token1]; AGroup 15552 1 [anon_sym_LBRACK];
     SGroup 2862 1 [sym__ppIf]; SGroup 3037 1 [aux_sym__declProc_repeat1];
     SGroup 3880 1 [sym__procAttributeNoExt]; SGroup 3961 1 [sym__procAttributesPp];
     SGroup 14297 1 [sym_procAttribute]; AGroup 3 2 syms_5; AGroup 6426 2 syms_44;
     AGroup 1016 39 syms_33]);
   (21389, 5, [AGroup 5 1 [sym_ppDirective]; AGroup 3 2 syms_5; AGroup 15439 7 syms_34;
     AGroup 15403 18 syms_36; AGroup 15437 29 syms_46]);
   (21457, 5, [AGroup 5 1 [sym_ppDirective]; AGroup 3 2 syms_5; AGroup 15488 7 syms_34;
     AGroup 15403 18 syms_36; AGroup 15486 29 syms_46]);
   (21525, 17, [AGroup 5 1 [sym_ppDirective]; AGroup 11641 1 [sym_kDispId]; AGroup 11643 1 [sym_kPublic];
     AGroup 11645 1 [sym_kMessage]; AGroup 11647 1 [sym_kDeprecated];
     AGroup 11649 1 [sym_kExport]; AGroup 11651 1 [sym_kAlias];
     AGroup 15329 1 [aux_sym_ppUsesBlock_token1]; AGroup 15552 1 [anon_sym_LBRACK];
     SGroup 2862 1 [sym__ppIf]; SGroup 3037 1 [aux_sym__declProc_repeat1];
     SGroup 3880 1 [sym__procAttributeNoExt]; SGroup 3961 1 [sym__procAttributesPp];
     SGroup 14297 1 [sym_procAttribute]; AGroup 3 2 syms_5; AGroup 5750 2 syms_44;
     AGroup 1016 39 syms_33]);
   (21617, 17, [AGroup 5 1 [sym_ppDirective]; AGroup 11641 1 [sym_kDispId]; AGroup 11643 1 [sym_kPublic];
     AGroup 11645 1 [sym_kMessage]; AGroup 11647 1 [sym_kDeprecated];
     AGroup 11649 1 [sym_kExport]; AGroup 11651 1 [sym_kAlias];
     AGroup 15329 1 [aux_sym_ppUsesBlock_token1]; AGroup 15552 1 [anon_sym_LBRACK];
     SGroup 2862 1 [sym__ppIf]; SGroup 3007 1 [aux_sym__declProc_repeat1];
     SGroup 3880 1 [sym__procAttributeNoExt]; SGroup 3961 1 [sym__procAttributesPp];
     SGroup 14297 1 [sym_procAttribute]; AGroup 3 2 syms_5; AGroup 7059 2 syms_44;
     AGroup 1016 39 syms_33]);
   (21709, 17, [AGroup 5 1 [sym_ppDirective]; AGroup 11641 1 [sym_kDispId]; AGroup 11643 1 [sym_kPublic];
     AGroup 11645 1 [sym_kMessage]; AGroup 11647 1 [sym_kDeprecated];
     AGroup 11649 1 [sym_kExport]; AGroup 11651 1 [sym_kAlias];
     AGroup 15329 1 [aux_sym_ppUsesBlock_token1]; AGroup 15552 1 [anon_sym_LBRACK];
     SGroup 2862 1 [sym__ppIf]; SGroup 3019 1 [aux_sym__declProc_repeat1];
     SGroup 3880 1 [sym__procAttributeNoExt]; SGroup 3961 1 [sym__procAttributesPp];
     SGroup 14297 1 [sym_procAttribute]; AGroup 3 2 syms_5; AGroup 7205 2 syms_44;
     AGroup 1016 39 syms_33]);
   (21801, 17, [AGroup 5 1 [sym_ppDirective]; AGroup 11641 1 [sym_kDispId]; AGroup 11643 1 [sym_kPublic];
     AGroup 11645 1 [sym_kMessage]; AGroup 11647 1 [sym_kDeprecated];
     AGroup 11649 1 [sym_kExport]; AGroup 11651 1 [sym_kAlias];
     AGroup 15329 1 [aux_sym_ppUsesBlock_token1]; AGroup 15552 1 [anon_sym_LBRACK];
     SGroup 2862 1 [sym__ppIf]; SGroup 3037 1 [aux_sym__declProc_repeat1];
     SGroup 3880 1 [sym__procAttributeNoExt]; SGroup 3961 1 [sym__procAttributesPp];
     SGroup 14297 1 [sym_procAttribute]; AGroup 3 2 syms_5; AGroup 1758 2 syms_44;
     AGroup 1016 39 syms_33]);
   (21893, 2, [AGroup 3 3 syms_1; AGroup 15590 54 syms_49]);
   (21955, 17, [AGroup 5 1 [sym_ppDirective]; AGroup 11641 1 [sym_kDispId]; AGroup 11643 1 [sym_kPublic];
     AGroup 11645 1 [sym_kMessage]; AGroup 11647 1 [sym_kDeprecated];
     AGroup 11649 1 [sym_kExport]; AGroup 11651 1 [sym_kAlias];
     AGroup 15329 1 [aux_sym_ppUsesBlock_token1]; AGroup 15552 1 [anon_sym_LBRACK];
     SGroup 2862 1 [sym__ppIf]; SGroup 3037 1 [aux_sym__declProc_repeat1];
     SGroup 3880 1 [sym__procAttributeNoExt]; SGroup 3961 1 [sym__procAttributesPp];
     SGroup 14297 1 [sym_procAttribute]; AGroup 3 2 syms_5; AGroup 3998 2 syms_44;
     AGroup 1016 39 syms_33]);
   (22047, 17, [AGroup 5 1 [sym_ppDirective]; AGroup 11641 1 [sym_kDispId]; AGroup 11643 1 [sym_kPublic];
     AGroup 11645 1 [sym_kMessage]; AGroup 11647 1 [sym_kDeprecated];
     AGroup 11649 1 [sym_kExport]; AGroup 11651 1 [sym_kAlias];
     AGroup 15329 1 [aux_sym_ppUsesBlock_token1]; AGroup 15552 1 [anon_sym_LBRACK];
     SGroup 2862 1 [sym__ppIf]; SGroup 3037 1 [aux_sym__declProc_repeat1];
     SGroup 3880 1 [sym__procAttributeNoExt]; SGroup 3961 1 [sym__procAttributesPp];
     SGroup 14297 1 [sym_procAttribute]; AGroup 3 2 syms_5; AGroup 4820 2 syms_44;
     AGroup 1016 39 syms_33]);
   (22139, 17, [AGroup 5 1 [sym_ppDirective]; AGroup 11641 1 [sym_kDispId]; AGroup 11643 1 [sym_kPublic];
     AGroup 11645 1 [sym_kMessage]; AGroup 11647 1 [sym_kDeprecated];
     AGroup 11649 1 [sym_kExport]; AGroup 11651 1 [sym_kAlias];
     AGroup 15329 1 [aux_sym_ppUsesBlock_token1]; AGroup 15552 1 [anon_sym_LBRACK];
     SGroup 2862 1 [sym__ppIf]; SGroup 2935 1 [aux_sym__declProc_repeat1];
     SGroup 3880 1 [sym__procAttributeNoExt]; SGroup 3961 1 [sym__procAttributesPp];
     SGroup 14297 1 [sym_procAttribute]; AGroup 3 2 syms_5; AGroup 5893 2 syms_44;
     AGroup 1016 39 syms_33]);
   (22231, 21, [AGroup 5 1 [sym_ppDirective]; AGroup 9986 1 [anon_sym_LBRACK];
     AGroup 9988 1 [anon_sym_LPAREN]; AGroup 9992 1 [anon_sym_POUND];
     AGroup 10008 1 [sym_kSpecialize]; AGroup 10026 1 [sym_kInherited];
     AGroup 10032 1 [sym_kString]; AGroup 15588 1 [sym_kIf]; AGroup 3 2 syms_5;
     AGroup 9990 2 syms_6; AGroup 9994 2 syms_7; AGroup 9996 2 syms_8; AGroup 9998 2 syms_9;
     AGroup 10000 2 syms_10; AGroup 10020 2 syms_11; SGroup 7660 2 syms_12;
     SGroup 6967 3 syms_13; SGroup 8134 4 syms_14; AGroup 10002 5 syms_15;
     AGroup 14747 7 syms_48; SGroup 7363 14 syms_17]);
   (22331, 17, [AGroup 5 1 [sym_ppDirective]; AGroup 11641 1 [sym_kDispId]; AGroup 11643 1 [sym_kPublic];
     AGroup 11645 1 [sym_kMessage]; AGroup 11647 1 [sym_kDeprecated];
     AGroup 11649 1 [sym_kExport]; AGroup 11651 1 [sym_kAlias];
     AGroup 15329 1 [aux_sym_ppUsesBlock_token1]; AGroup 15552 1 [anon_sym_LBRACK];
     SGroup 2862 1 [sym__ppIf]; SGroup 3041 1 [aux_sym__declProc_repeat1];
     SGroup 3880 1 [sym__procAttributeNoExt]; SGroup 3961 1 [sym__procAttributesPp];
     SGroup 14297 1 [sym_procAttribute]; AGroup 3 2 syms_5; AGroup 7000 2 syms_44;
     AGroup 1016 39 syms_33]);
   (22423, 17, [AGroup 5 1 [sym_ppDirective]; AGroup 11641 1 [sym_kDispId]; AGroup 11643 1 [sym_kPublic];
     AGroup 11645 1 [sym_kMessage]; AGroup 11647 1 [sym_kDeprecated];
     AGroup 11649 1 [sym_kExport]; AGroup 11651 1 [sym_kAlias];
     AGroup 15329 1 [aux_sym_ppUsesBlock_token1]; AGroup 15552 1 [anon_sym_LBRACK];
     SGroup 2862 1 [sym__ppIf]; SGroup 3037 1 [aux_sym__declProc_repeat1];
     SGroup 3880 1 [sym__procAttributeNoExt]; SGroup 3961 1 [sym__procAttributesPp];
     SGroup 14297 1 [sym_procAttribute]; AGroup 3 2 syms_5; AGroup 985 2 syms_44;
     AGroup 1016 39 syms_33]);
   (22515, 2, [AGroup 3 3 syms_1; AGroup 11318 54 syms_49]);
   (22577, 17, [AGroup 5 1 [sym_ppDirective]; AGroup 11641 1 [sym_kDispId]; AGroup 11643 1 [sym_kPublic];
     AGroup 11645 1 [sym_kMessage]; AGroup 11647 1 [sym_kDeprecated];
     AGroup 11649 1 [sym_kExport]; AGroup 11651 1 [sym_kAlias];
     AGroup 15329 1 [aux_sym_ppUsesBlock_token1]; AGroup 15552 1 [anon_sym_LBRACK];
     SGroup 2862 1 [sym__ppIf]; SGroup 3037 1 [aux_sym__declProc_repeat1];
     SGroup 3880 1 [sym__procAttributeNoExt]; SGroup 3961 1 [sym__procAttributesPp];
     SGroup 14297 1 [sym_procAttribute]; AGroup 3 2 syms_5; AGroup 3852 2 syms_44;
     AGroup 1016 39 syms_33]);
   (22669, 17, [AGroup 5 1 [sym_ppDirective]; AGroup 11641 1 [sym_kDispId]; AGroup 11643 1 [sym_kPublic];
     AGroup 11645 1 [sym_kMessage]; AGroup 11647 1 [sym_kDeprecated];
     AGroup 11649 1 [sym_kExport]; AGroup 11651 1 [sym_kAlias];
     AGroup 15329 1 [aux_sym_ppUsesBlock_token1]; AGroup 15552 1 [anon_sym_LBRACK];
     SGroup 2862 1 [sym__ppIf]; SGroup 3037 1 [aux_sym__declProc_repeat1];
     SGroup 3880 1 [sym__procAttributeNoExt]; SGroup 3961 1 [sym__procAttributesPp];
     SGroup 14297 1 [sym_procAttribute]; AGroup 3 2 syms_5; AGroup 2273 2 syms_44;
     AGroup 1016 39 syms_33]);
   (22761, 17, [AGroup 5 1 [sym_ppDirective]; AGroup 11641 1 [sym_kDispId]; AGroup 11643 1 [sym_kPublic];
     AGroup 11645 1 [sym_kMessage]; AGroup 11647 1 [sym_kDeprecated];
     AGroup 11649 1 [sym_kExport]; AGroup 11651 1 [sym_kAlias];
     AGroup 15329 1 [aux_sym_ppUsesBlock_token1]; AGroup 15552 1 [anon_sym_LBRACK];
     SGroup 2862 1 [sym__ppIf]; SGroup 2929 1 [aux_sym__declProc_repeat1];
     SGroup 3880 1 [sym__procAttributeNoExt]; SGroup 3961 1 [sym__procAttributesPp];
     SGroup 14297 1 [sym_procAttribute]; AGroup 3 2 syms_5; AGroup 2318 2 syms_44;
     AGroup 1016 39 syms_33]);
   (22853, 4, [AGroup 5 1 [sym_ppDirective]; AGroup 3 2 syms_5; AGroup 15295 7 syms_34;
     AGroup 15293 47 syms_50]);
   (22919, 17, [AGroup 5 1 [sym_ppDirective]; AGroup 11641 1 [sym_kDispId]; AGroup 11643 1 [sym_kPublic];
     AGroup 11645 1 [sym_kMessage]; AGroup 11647 1 [sym_kDeprecated];
     AGroup 11649 1 [sym_kExport]; AGroup 11651 1 [sym_kAlias];
     AGroup 15329 1 [aux_sym_ppUsesBlock_token1]; AGroup 15552 1 [anon_sym_LBRACK];
     SGroup 2862 1 [sym__ppIf]; SGroup 3009 1 [aux_sym__declProc_repeat1];
     SGroup 3880 1 [sym__procAttributeNoExt]; SGroup 3961 1 [sym__procAttributesPp];
     SGroup 14297 1 [sym_procAttribute]; AGroup 3 2 syms_5; AGroup 1334 2 syms_44;
     AGroup 1016 39 syms_33]);
   (23011, 17, [AGroup 5 1 [sym_ppDirective]; AGroup 11641 1 [sym_kDispId]; AGroup 11643 1 [sym_kPublic];
     AGroup 11645 1 [sym_kMessage]; AGroup 11647 1 [sym_kDeprecated];
     AGroup 11649 1 [sym_kExport]; AGroup 11651 1 [sym_kAlias];
     AGroup 15329 1 [aux_sym_ppUsesBlock_token1]; AGroup 15552 1 [anon_sym_LBRACK];
     SGroup 2862 1 [sym__ppIf]; SGroup 2930 1 [aux_sym__declProc_repeat1];
     SGroup 3880 1 [sym__procAttributeNoExt]; SGroup 3961 1 [sym__procAttributesPp];
     SGroup 14297 1 [sym_procAttribute]; AGroup 3 2 syms_5; AGroup 2351 2 syms_44;
     AGroup 1016 39 syms_33]);
   (23103, 17, [AGroup 5 1 [sym_ppDirective]; AGroup 11641 1 [sym_kDispId]; AGroup 11643 1 [sym_kPublic];
     AGroup 11645 1 [sym_kMessage]; AGroup 11647 1 [sym_kDeprecated];
     AGroup 11649 1 [sym_kExport]; AGroup 11651 1 [sym_kAlias];
     AGroup 15329 1 [aux_sym_ppUsesBlock_token1]; AGroup 15552 1 [anon_sym_LBRACK];
     SGroup 2862 1 [sym__ppIf]; SGroup 3037 1 [aux_sym__declProc_repeat1];
     SGroup 3880 1 [sym__procAttributeNoExt]; SGroup 3961 1 [sym__procAttributesPp];
     SGroup 14297 1 [sym_procAttribute]; AGroup 3 2 syms_5; AGroup 2396 2 syms_44;
     AGroup 1016 39 syms_33]);
   (23195, 2, [AGroup 3 3 syms_1; AGroup 15592 54 syms_49]);
   (23257, 17, [AGroup 5 1 [sym_ppDirective]; AGroup 11641 1 [sym_kDispId]; AGroup 11643 1 [sym_kPublic];
     AGroup 11645 1 [sym_kMessage]; AGroup 11647 1 [sym_kDeprecated];
     AGroup 11649 1 [sym_kExport]; AGroup 11651 1 [sym_kAlias];
     AGroup 15329 1 [aux_sym_ppUsesBlock_token1]; AGroup 15552 1 [anon_sym_LBRACK];
     SGroup 2862 1 [sym__ppIf]; SGroup 2936 1 [aux_sym__declProc_repeat1];
     SGroup 3880 1 [sym__procAttributeNoExt]; SGroup 3961 1 [sym__procAttributesPp];
     SGroup 14297 1 [sym_procAttribute]; AGroup 3 2 syms_5; AGroup 5927 2 syms_44;
     AGroup 1016 39 syms_33]);
   (23349, 17, [AGroup 5 1 [sym_ppDirective]; AGroup 11641 1 [sym_kDispId]; AGroup 11643 1 [sym_kPublic];
     AGroup 11645 1 [sym_kMessage]; AGroup 11647 1 [sym_kDeprecated];
     AGroup 11649 1 [sym_kExport]; AGroup 11651 1 [sym_kAlias];
     AGroup 15329 1 [aux_sym_ppUsesBlock_token1]; AGroup 15552 1 [anon_sym_LBRACK];
     SGroup 2862 1 [sym__ppIf]; SGroup 3040 1 [aux_sym__declProc_repeat1];
     SGroup 3880 1 [sym__procAttributeNoExt]; SGroup 3961 1 [sym__procAttributesPp];
     SGroup 14297 1 [sym_procAttribute]; AGroup 3 2 syms_5; AGroup 5190 2 syms_44;
     AGroup 1016 39 syms_33]);
   (23441, 21, [AGroup 5 1 [sym_ppDirective]; AGroup 927 1 [anon_sym_LBRACK];
     AGroup 929 1 [anon_sym_LPAREN]; AGroup 933 1 [anon_sym_POUND];
     AGroup 949 1 [sym_kSpecialize]; AGroup 967 1 [sym_kInherited]; AGroup 973 1 [sym_kString];
     AGroup 15586 1 [sym_kIf]; AGroup 3 2 syms_5; AGroup 931 2 syms_6; AGroup 935 2 syms_7;
     AGroup 937 2 syms_8; AGroup 939 2 syms_9; AGroup 941 2 syms_10; AGroup 961 2 syms_11;
     SGroup 7570 2 syms_12; SGroup 6915 3 syms_13; SGroup 8029 4 syms_14; AGroup 943 5 syms_15;
     AGroup 14765 7 syms_47; SGroup 7533 14 syms_17]);
   (23541, 17, [AGroup 5 1 [sym_ppDirective]; AGroup 11641 1 [sym_kDispId]; AGroup 11643 1 [sym_kPublic];
     AGroup 11645 1 [sym_kMessage]; AGroup 11647 1 [sym_kDeprecated];
     AGroup 11649 1 [sym_kExport]; AGroup 11651 1 [sym_kAlias];
     AGroup 15329 1 [aux_sym_ppUsesBlock_token1]; AGroup 15552 1 [anon_sym_LBRACK];
     SGroup 2862 1 [sym__ppIf]; SGroup 3037 1 [aux_sym__declProc_repeat1];
     SGroup 3880 1 [sym__procAttributeNoExt]; SGroup 3961 1 [sym__procAttributesPp];
     SGroup 14297 1 [sym_procAttribute]; AGroup 3 2 syms_5; AGroup 6460 2 syms_44;
     AGroup 1016 39 syms_33]);
   (23633, 4, [AGroup 5 1 [sym_ppDirective]; AGroup 3 2 syms_5; AGroup 15355 7 syms_34;
     AGroup 15353 47 syms_50]);
   (23699, 17, [AGroup 5 1 [sym_ppDirective]; AGroup 11641 1 [sym_kDispId]; AGroup 11643 1 [sym_kPublic];
     AGroup 11645 1 [sym_kMessage]; AGroup 11647 1 [sym_kDeprecated];
     AGroup 11649 1 [sym_kExport]; AGroup 11651 1 [sym_kAlias];
     AGroup 15329 1 [aux_sym_ppUsesBlock_token1]; AGroup 15552 1 [anon_sym_LBRACK];
     SGroup 2862 1 [sym__ppIf]; SGroup 3037 1 [aux_sym__declProc_repeat1];
     SGroup 3880 1 [sym__procAttributeNoExt]; SGroup 3961 1 [sym__procAttributesPp];
     SGroup 14297 1 [sym_procAttribute]; AGroup 3 2 syms_5; AGroup 6882 2 syms_44;
     AGroup 1016 39 syms_33]);
   (23791, 17, [AGroup 5 1 [sym_ppDirective]; AGroup 11641 1 [sym_kDispId]; AGroup 11643 1 [sym_kPublic];
     AGroup 11645 1 [sym_kMessage]; AGroup 11647 1 [sym_kDeprecated];
     AGroup 11649 1 [sym_kExport]; AGroup 11651 1 [sym_kAlias];
     AGroup 15329 1 [aux_sym_ppUsesBlock_token1]; AGroup 15552 1 [anon_sym_LBRACK];
     SGroup 2862 1 [sym__ppIf]; SGroup 2982 1 [aux_sym__declProc_repeat1];
     SGroup 3880 1 [sym__procAttributeNoExt]; SGroup 3961 1 [sym__procAttributesPp];
     SGroup 14297 1 [sym_procAttribute]; AGroup 3 2 syms_5; AGroup 1727 2 syms_44;
     AGroup 1016 39 syms_33]);
   (23883, 17, [AGroup 5 1 [sym_ppDirective]; AGroup 11641 1 [sym_kDispId]; AGroup 11643 1 [sym_kPublic];
     AGroup 11645 1 [sym_kMessage]; AGroup 11647 1 [sym_kDeprecated];
     AGroup 11649 1 [sym_kExport]; AGroup 11651 1 [sym_kAlias];
     AGroup 15329 1 [aux_sym_ppUsesBlock_token1]; AGroup 15552 1 [anon_sym_LBRACK];
     SGroup 2862 1 [sym__ppIf]; SGroup 3037 1 [aux_sym__declProc_repeat1];
     SGroup 3880 1 [sym__procAttributeNoExt]; SGroup 3961 1 [sym__procAttributesPp];
     SGroup 14297 1 [sym_procAttribute]; AGroup 3 2 syms_5; AGroup 1018 2 syms_44;
     AGroup 1016 39 syms_33]);
   (23975, 17, [AGroup 5 1 [sym_ppDirective]; AGroup 11641 1 [sym_kDispId]; AGroup 11643 1 [sym_kPublic];
     AGroup 11645 1 [sym_kMessage]; AGroup 11647 1 [sym_kDeprecated];
     AGroup 11649 1 [sym_kExport]; AGroup 11651 1 [sym_kAlias];
     AGroup 15329 1 [aux_sym_ppUsesBlock_token1]; AGroup 15552 1 [anon_sym_LBRACK];
     SGroup 2862 1 [sym__ppIf]; SGroup 3037 1 [aux_sym__declProc_repeat1];
     SGroup 3880 1 [sym__procAttributeNoExt]; SGroup 3961 1 [sym__procAttributesPp];
     SGroup 14297 1 [sym_procAttribute]; AGroup 3 2 syms_5; AGroup 1049 2 syms_44;
     AGroup 1016 39 syms_33]);
   (24067, 17, [AGroup 5 1 [sym_ppDirective]; AGroup 11641 1 [sym_kDispId]; AGroup 11643 1 [sym_kPublic];
     AGroup 11645 1 [sym_kMessage]; AGroup 11647 1 [sym_kDeprecated];
     AGroup 11649 1 [sym_kExport]; AGroup 11651 1 [sym_kAlias];
     AGroup 15329 1 [aux_sym_ppUsesBlock_token1]; AGroup 15552 1 [anon_sym_LBRACK];
     SGroup 2862 1 [sym__ppIf]; SGroup 3013 1 [aux_sym__declProc_repeat1];
     SGroup 3880 1 [sym__procAttributeNoExt]; SGroup 3961 1 [sym__procAttributesPp];
     SGroup 14297 1 [sym_procAttribute]; AGroup 3 2 syms_5; AGroup 1080 2 syms_44;
     AGroup 1016 39 syms_33]);
   (24159, 17, [AGroup 5 1 [sym_ppDirective]; AGroup 11641 1 [sym_kDispId]; AGroup 11643 1 [sym_kPublic];
     AGroup 11645 1 [sym_kMessage]; AGroup 11647 1 [sym_kDeprecated];
     AGroup 11649 1 [sym_kExport]; AGroup 11651 1 [sym_kAlias];
     AGroup 15329 1 [aux_sym_ppUsesBlock_token1]; AGroup 15552 1 [anon_sym_LBRACK];
     SGroup 2862 1 [sym__ppIf]; SGroup 3037 1 [aux_sym__declProc_repeat1];
     SGroup 3880 1 [sym__procAttributeNoExt]; SGroup 3961 1 [sym__procAttributesPp];
     SGroup 14297 1 [sym_procAttribute]; AGroup 3 2 syms_5; AGroup 1111 2 syms_44;
     AGroup 1016 39 syms_33]);
   (24251, 17, [AGroup 5 1 [sym_ppDirective]; AGroup 11641 1 [sym_kDispId]; AGroup 11643 1 [sym_kPublic];
     AGroup 11645 1 [sym_kMessage]; AGroup 11647 1 [sym_kDeprecated];
     AGroup 11649 1 [sym_kExport]; AGroup 11651 1 [sym_kAlias];
     AGroup 15329 1 [aux_sym_ppUsesBlock_token1]; AGroup 15552 1 [anon_sym_LBRACK];
     SGroup 2862 1 [sym__ppIf]; SGroup 3028 1 [aux_sym__declProc_repeat1];
     SGroup 3880 1 [sym__procAttributeNoExt]; SGroup 3961 1 [sym__procAttributesPp];
     SGroup 14297 1 [sym_procAttribute]; AGroup 3 2 syms_5; AGroup 1383 2 syms_44;
     AGroup 1016 39 syms_33]);
   (24343, 17, [AGroup 5 1 [sym_ppDirective]; AGroup 11641 1 [sym_kDispId]; AGroup 11643 1 [sym_kPublic];
     AGroup 11645 1 [sym_kMessage]; AGroup 11647 1 [sym_kDeprecated];
     AGroup 11649 1 [sym_kExport]; AGroup 11651 1 [sym_kAlias];
     AGroup 15329 1 [aux_sym_ppUsesBlock_token1]; AGroup 15552 1 [anon_sym_LBRACK];
     SGroup 2862 1 [sym__ppIf]; SGroup 3037 1 [aux_sym__declProc_repeat1];
     SGroup 3880 1 [sym__procAttributeNoExt]; SGroup 3961 1 [sym__procAttributesPp];
     SGroup 14297 1 [sym_procAttribute]; AGroup 3 2 syms_5; AGroup 6389 2 syms_44;
     AGroup 1016 39 syms_33]);
   (24435, 17, [AGroup 5 1 [sym_ppDirective]; AGroup 11641 1 [sym_kDispId]; AGroup 11643 1 [sym_kPublic];
     AGroup 11645 1 [sym_kMessage]; AGroup 11647 1 [sym_kDeprecated];
     AGroup 11649 1 [sym_kExport]; AGroup 11651 1 [sym_kAlias];
     AGroup 15329 1 [aux_sym_ppUsesBlock_token1]; AGroup 15552 1 [anon_sym_LBRACK];
     SGroup 2862 1 [sym__ppIf]; SGroup 3037 1 [aux_sym__declProc_repeat1];
     SGroup 3880 1 [sym__procAttributeNoExt]; SGroup 3961 1 [sym__procAttributesPp];
     SGroup 14297 1 [sym_procAttribute]; AGroup 3 2 syms_5; AGroup 5996 2 syms_44;
     AGroup 1016 39 syms_33]);
   (24527, 17, [AGroup 5 1 [sym_ppDirective]; AGroup 11641 1 [sym_kDispId]; AGroup 11643 1 [sym_kPublic];
     AGroup 11645 1 [sym_kMessage]; AGroup 11647 1 [sym_kDeprecated];
     AGroup 11649 1 [sym_kExport]; AGroup 11651 1 [sym_kAlias];
     AGroup 15329 1 [aux_sym_ppUsesBlock_token1]; AGroup 15552 1 [anon_sym_LBRACK];
     SGroup 2862 1 [sym__ppIf]; SGroup 3037 1 [aux_sym__declProc_repeat1];
     SGroup 3880 1 [sym__procAttributeNoExt]; SGroup 3961 1 [sym__procAttributesPp];
     SGroup 14297 1 [sym_procAttribute]; AGroup 3 2 syms_5; AGroup 6027 2 syms_44;
     AGroup 1016 39 syms_33]);
   (24619, 17, [AGroup 5 1 [sym_ppDirective]; AGroup 11641 1 [sym_kDispId]; AGroup 11643 1 [sym_kPublic];
     AGroup 11645 1 [sym_kMessage]; AGroup 11647 1 [sym_kDeprecated];
     AGroup 11649 1 [sym_kExport]; AGroup 11651 1 [sym_kAlias];
     AGroup 15329 1 [aux_sym_ppUsesBlock_token1]; AGroup 15552 1 [anon_sym_LBRACK];
     SGroup 2862 1 [sym__ppIf]; SGroup 3045 1 [aux_sym__declProc_repeat1];
     SGroup 3880 1 [sym__procAttributeNoExt]; SGroup 3961 1 [sym__procAttributesPp];
     SGroup 14297 1 [sym_procAttribute]; AGroup 3 2 syms_5; AGroup 7236 2 syms_44;
     AGroup 1016 39 syms_33]);
   (24711, 17, [AGroup 5 1 [sym_ppDirective]; AGroup 11641 1 [sym_kDispId]; AGroup 11643 1 [sym_kPublic];
     AGroup 11645 1 [sym_kMessage]; AGroup 11647 1 [sym_kDeprecated];
     AGroup 11649 1 [sym_kExport]; AGroup 11651 1 [sym_kAlias];
     AGroup 15329 1 [aux_sym_ppUsesBlock_token1]; AGroup 15552 1 [anon_sym_LBRACK];
     SGroup 2862 1 [sym__ppIf]; SGroup 2966 1 [aux_sym__declProc_repeat1];
     SGroup 3880 1 [sym__procAttributeNoExt]; SGroup 3961 1 [sym__procAttributesPp];
     SGroup 14297 1 [sym_procAttribute]; AGroup 3 2 syms_5; AGroup 3818 2 syms_44;
     AGroup 1016 39 syms_33]);
   (24803, 17, [AGroup 5 1 [sym_ppDirective]; AGroup 11641 1 [sym_kDispId]; AGroup 11643 1 [sym_kPublic];
     AGroup 11645 1 [sym_kMessage]; AGroup 11647 1 [sym_kDeprecated];
     AGroup 11649 1 [sym_kExport]; AGroup 11651 1 [sym_kAlias];
     AGroup 15329 1 [aux_sym_ppUsesBlock_token1]; AGroup 15552 1 [anon_sym_LBRACK];
     SGroup 2862 1 [sym__ppIf]; SGroup 3037 1 [aux_sym__declProc_repeat1];
     SGroup 3880 1 [sym__procAttributeNoExt]; SGroup 3961 1 [sym__procAttributesPp];
     SGroup 14297 1 [sym_procAttribute]; AGroup 3 2 syms_5; AGroup 1883 2 syms_44;
     AGroup 1016 39 syms_33]);
   (24895, 17, [AGroup 5 1 [sym_ppDirective]; AGroup 11641 1 [sym_kDispId]; AGroup 11643 1 [sym_kPublic];
     AGroup 11645 1 [sym_kMessage]; AGroup 11647 1 [sym_kDeprecated];
     AGroup 11649 1 [sym_kExport]; AGroup 11651 1 [sym_kAlias];
     AGroup 15329 1 [aux_sym_ppUsesBlock_token1]; AGroup 15552 1 [anon_sym_LBRACK];
     SGroup 2862 1 [sym__ppIf]; SGroup 3037 1 [aux_sym__declProc_repeat1];
     SGroup 3880 1 [sym__procAttributeNoExt]; SGroup 3961 1 [sym__procAttributesPp];
     SGroup 14297 1 [sym_procAttribute]; AGroup 3 2 syms_5; AGroup 4206 2 syms_44;
     AGroup 1016 39 syms_33]);
   (24987, 17, [AGroup 5 1 [sym_ppDirective]; AGroup 11641 1 [sym_kDispId]; AGroup 11643 1 [sym_kPublic];
     AGroup 11645 1 [sym_kMessage]; AGroup 11647 1 [sym_kDeprecated];
     AGroup 11649 1 [sym_kExport]; AGroup 11651 1 [sym_kAlias];
     AGroup 15329 1 [aux_sym_ppUsesBlock_token1]; AGroup 15552 1 [anon_sym_LBRACK];
     SGroup 2862 1 [sym__ppIf]; SGroup 2943 1 [aux_sym__declProc_repeat1];
     SGroup 3880 1 [sym__procAttributeNoExt]; SGroup 3961 1 [sym__procAttributesPp];
     SGroup 14297 1 [sym_procAttribute]; AGroup 3 2 syms_5; AGroup 3911 2 syms_44;
     AGroup 1016 39 syms_33]);
   (25079, 17, [AGroup 5 1 [sym_ppDirective]; AGroup 11641 1 [sym_kDispId]; AGroup 11643 1 [sym_kPublic];
     AGroup 11645 1 [sym_kMessage]; AGroup 11647 1 [sym_kDeprecated];
     AGroup 11649 1 [sym_kExport]; AGroup 11651 1 [sym_kAlias];
     AGroup 15329 1 [aux_sym_ppUsesBlock_token1]; AGroup 15552 1 [anon_sym_LBRACK];
     SGroup 2862 1 [sym__ppIf]; SGroup 3037 1 [aux_sym__declProc_repeat1];
     SGroup 3880 1 [sym__procAttributeNoExt]; SGroup 3961 1 [sym__procAttributesPp];
     SGroup 14297 1 [sym_procAttribute]; AGroup 3 2 syms_5; AGroup 1432 2 syms_44;
     AGroup 1016 39 syms_33]);
   (25171, 17, [AGroup 5 1 [sym_ppDirective]; AGroup 11641 1 [sym_kDispId]; AGroup 11643 1 [sym_kPublic];
     AGroup 11645 1 [sym_kMessage]; AGroup 11647 1 [sym_kDeprecated];
     AGroup 11649 1 [sym_kExport]; AGroup 11651 1 [sym_kAlias];
     AGroup 15329 1 [aux_sym_ppUsesBlock_token1]; AGroup 15552 1 [anon_sym_LBRACK];
     SGroup 2862 1 [sym__ppIf]; SGroup 3037 1 [aux_sym__declProc_repeat1];
     SGroup 3880 1 [sym__procAttributeNoExt]; SGroup 3961 1 [sym__procAttributesPp];
     SGroup 14297 1 [sym_procAttribute]; AGroup 3 2 syms_5; AGroup 6103 2 syms_44;
     AGroup 1016 39 syms_33]);
   (25263, 2, [AGroup 3 3 syms_1; AGroup 15594 54 syms_49]);
   (25325, 17, [AGroup 5 1 [sym_ppDirective]; AGroup 11641 1 [sym_kDispId]; AGroup 11643 1 [sym_kPublic];
     AGroup 11645 1 [sym_kMessage]; AGroup 11647 1 [sym_kDeprecated];
     AGroup 11649 1 [sym_kExport]; AGroup 11651 1 [sym_kAlias];
     AGroup 15329 1 [aux_sym_ppUsesBlock_token1]; AGroup 15552 1 [anon_sym_LBRACK];
     SGroup 2862 1 [sym__ppIf]; SGroup 3022 1 [aux_sym__declProc_repeat1];
     SGroup 3880 1 [sym__procAttributeNoExt]; SGroup 3961 1 [sym__procAttributesPp];
     SGroup 14297 1 [sym_procAttribute]; AGroup 3 2 syms_5; AGroup 1914 2 syms_44;
     AGroup 1016 39 syms_33]);
   (25417, 17, [AGroup 5 1 [sym_ppDirective]; AGroup 11641 1 [sym_kDispId]; AGroup 11643 1 [sym_kPublic];
     AGroup 11645 1 [sym_kMessage]; AGroup 11647 1 [sym_kDeprecated];
     AGroup 11649 1 [sym_kExport]; AGroup 11651 1 [sym_kAlias];
     AGroup 15329 1 [aux_sym_ppUsesBlock_token1]; AGroup 15552 1 [anon_sym_LBRACK];
     SGroup 2862 1 [sym__ppIf]; SGroup 3037 1 [aux_sym__declProc_repeat1];
     SGroup 3880 1 [sym__procAttributeNoExt]; SGroup 3961 1 [sym__procAttributesPp];
     SGroup 14297 1 [sym_procAttribute]; AGroup 3 2 syms_5; AGroup 1142 2 syms_44;
     AGroup 1016 39 syms_33]);
   (25509, 17, [AGroup 5 1 [sym_ppDirective]; AGroup 11641 1 [sym_kDispId]; AGroup 11643 1 [sym_kPublic];
     AGroup 11645 1 [sym_kMessage]; AGroup 11647 1 [sym_kDeprecated];
     AGroup 11649 1 [sym_kExport]; AGroup 11651 1 [sym_kAlias];
     AGroup 15329 1 [aux_sym_ppUsesBlock_token1]; AGroup 15552 1 [anon_sym_LBRACK];
     SGroup 2862 1 [sym__ppIf]; SGroup 2972 1 [aux_sym__declProc_repeat1];
     SGroup 3880 1 [sym__procAttributeNoExt]; SGroup 3961 1 [sym__procAttributesPp];
     SGroup 14297 1 [sym_procAttribute]; AGroup 3 2 syms_5; AGroup 1477 2 syms_44;
     AGroup 1016 39 syms_33]);
   (25601, 17, [AGroup 5 1 [sym_ppDirective]; AGroup 11641 1 [sym_kDispId]; AGroup 11643 1 [sym_kPublic];
     AGroup 11645 1 [sym_kMessage]; AGroup 11647 1 [sym_kDeprecated];
     AGroup 11649 1 [sym_kExport]; AGroup 11651 1 [sym_kAlias];
     AGroup 15329 1 [aux_sym_ppUsesBlock_token1]; AGroup 15552 1 [anon_sym_LBRACK];
     SGroup 2862 1 [sym__ppIf]; SGroup 2942 1 [aux_sym__declProc_repeat1];
     SGroup 3880 1 [sym__procAttributeNoExt]; SGroup 3961 1 [sym__procAttributesPp];
     SGroup 14297 1 [sym_procAttribute]; AGroup 3 2 syms_5; AGroup 1508 2 syms_44;
     AGroup 1016 39 syms_33]);
   (25693, 17, [AGroup 5 1 [sym_ppDirective]; AGroup 11641 1 [sym_kDispId]; AGroup 11643 1 [sym_kPublic];
     AGroup 11645 1 [sym_kMessage]; AGroup 11647 1 [sym_kDeprecated];
     AGroup 11649 1 [sym_kExport]; AGroup 11651 1 [sym_kAlias];
     AGroup 15329 1 [aux_sym_ppUsesBlock_token1]; AGroup 15552 1 [anon_sym_LBRACK];
     SGroup 2862 1 [sym__ppIf]; SGroup 3023 1 [aux_sym__declProc_repeat1];
     SGroup 3880 1 [sym__procAttributeNoExt]; SGroup 3961 1 [sym__procAttributesPp];
     SGroup 14297 1 [sym_procAttribute]; AGroup 3 2 syms_5; AGroup 1947 2 syms_44;
     AGroup 1016 39 syms_33]);
   (25785, 2, [AGroup 3 3 syms_1; AGroup 15596 54 syms_49]);
   (25847, 17, [AGroup 5 1 [sym_ppDirective]; AGroup 11641 1 [sym_kDispId]; AGroup 11643 1 [sym_kPublic];
     AGroup 11645 1 [sym_kMessage]; AGroup 11647 1 [sym_kDeprecated];
     AGroup 11649 1 [sym_kExport]; AGroup 11651 1 [sym_kAlias];
     AGroup 15329 1 [aux_sym_ppUsesBlock_token1]; AGroup 15552 1 [anon_sym_LBRACK];
     SGroup 2862 1 [sym__ppIf]; SGroup 2981 1 [aux_sym__declProc_repeat1];
     SGroup 3880 1 [sym__procAttributeNoExt]; SGroup 3961 1 [sym__procAttributesPp];
     SGroup 14297 1 [sym_procAttribute]; AGroup 3 2 syms_5; AGroup 4265 2 syms_44;
     AGroup 1016 39 syms_33]);
   (25939, 17, [AGroup 5 1 [sym_ppDirective]; AGroup 11641 1 [sym_kDispId]; AGroup 11643 1 [sym_kPublic];
     AGroup 11645 1 [sym_kMessage]; AGroup 11647 1 [sym_kDeprecated];
     AGroup 11649 1 [sym_kExport]; AGroup 11651 1 [sym_kAlias];
     AGroup 15329 1 [aux_sym_ppUsesBlock_token1]; AGroup 15552 1 [anon_sym_LBRACK];
     SGroup 2862 1 [sym__ppIf]; SGroup 3037 1 [aux_sym__declProc_repeat1];
     SGroup 3880 1 [sym__procAttributeNoExt]; SGroup 3961 1 [sym__procAttributesPp];
     SGroup 14297 1 [sym_procAttribute]; AGroup 3 2 syms_5; AGroup 4303 2 syms_44;
     AGroup 1016 39 syms_33]);
   (26031, 17, [AGroup 5 1 [sym_ppDirective]; AGroup 11641 1 [sym_kDispId]; AGroup 11643 1 [sym_kPublic];
     AGroup 11645 1 [sym_kMessage]; AGroup 11647 1 [sym_kDeprecated];
     AGroup 11649 1 [sym_kExport]; AGroup 11651 1 [sym_kAlias];
     AGroup 15329 1 [aux_sym_ppUsesBlock_token1]; AGroup 15552 1 [anon_sym_LBRACK];
     SGroup 2862 1 [sym__ppIf]; SGroup 3033 1 [aux_sym__declProc_repeat1];
     SGroup 3880 1 [sym__procAttributeNoExt]; SGroup 3961 1 [sym__procAttributesPp];
     SGroup 14297 1 [sym_procAttribute]; AGroup 3 2 syms_5; AGroup 4789 2 syms_44;
     AGroup 1016 39 syms_33]);
   (26123, 17, [AGroup 5 1 [sym_ppDirective]; AGroup 11641 1 [sym_kDispId]; AGroup 11643 1 [sym_kPublic];
     AGroup 11645 1 [sym_kMessage]; AGroup 11647 1 [sym_kDeprecated];
     AGroup 11649 1 [sym_kExport]; AGroup 11651 1 [sym_kAlias];
     AGroup 15329 1 [aux_sym_ppUsesBlock_token1]; AGroup 15552 1 [anon_sym_LBRACK];
     SGroup 2862 1 [sym__ppIf]; SGroup 2956 1 [aux_sym__declProc_repeat1];
     SGroup 3880 1 [sym__procAttributeNoExt]; SGroup 3961 1 [sym__procAttributesPp];
     SGroup 14297 1 [sym_procAttribute]; AGroup 3 2 syms_5; AGroup 2479 2 syms_44;
     AGroup 1016 39 syms_33]);
   (26215, 17, [AGroup 5 1 [sym_ppDirective]; AGroup 11641 1 [sym_kDispId]; AGroup 11643 1 [sym_kPublic];
     AGroup 11645 1 [sym_kMessage]; AGroup 11647 1 [sym_kDeprecated];
     AGroup 11649 1 [sym_kExport]; AGroup 11651 1 [sym_kAlias];
     AGroup 15329 1 [aux_sym_ppUsesBlock_token1]; AGroup 15552 1 [anon_sym_LBRACK];
     SGroup 2862 1 [sym__ppIf]; SGroup 3037 1 [aux_sym__declProc_repeat1];
     SGroup 3880 1 [sym__procAttributeNoExt]; SGroup 3961 1 [sym__procAttributesPp];
     SGroup 14297 1 [sym_procAttribute]; AGroup 3 2 syms_5; AGroup 2510 2 syms_44;
     AGroup 1016 39 syms_33]);
   (26307, 17, [AGroup 5 1 [sym_ppDirective]; AGroup 11641 1 [sym_kDispId]; AGroup 11643 1 [sym_kPublic];
     AGroup 11645 1 [sym_kMessage]; AGroup 11647 1 [sym_kDeprecated];
     AGroup 11649 1 [sym_kExport]; AGroup 11651 1 [sym_kAlias];
     AGroup 15329 1 [aux_sym_ppUsesBlock_token1]; AGroup 15552 1 [anon_sym_LBRACK];
     SGroup 2862 1 [sym__ppIf]; SGroup 3037 1 [aux_sym__declProc_repeat1];
     SGroup 3880 1 [sym__procAttributeNoExt]; SGroup 3961 1 [sym__procAttributesPp];
     SGroup 14297 1 [sym_procAttribute]; AGroup 3 2 syms_5; AGroup 2543 2 syms_44;
     AGroup 1016 39 syms_33]);
   (26399, 17, [AGroup 5 1 [sym_ppDirective]; AGroup 11641 1 [sym_kDispId]; AGroup 11643 1 [sym_kPublic];
     AGroup 11645 1 [sym_kMessage]; AGroup 11647 1 [sym_kDeprecated];
     AGroup 11649 1 [sym_kExport]; AGroup 11651 1 [sym_kAlias];
     AGroup 15329 1 [aux_sym_ppUsesBlock_token1]; AGroup 15552 1 [anon_sym_LBRACK];
     SGroup 2862 1 [sym__ppIf]; SGroup 2960 1 [aux_sym__declProc_repeat1];
     SGroup 3880 1 [sym__procAttributeNoExt]; SGroup 3961 1 [sym__procAttributesPp];
     SGroup 14297 1 [sym_procAttribute]; AGroup 3 2 syms_5; AGroup 2590 2 syms_44;
     AGroup 1016 39 syms_33]);
   (26491, 17, [AGroup 5 1 [sym_ppDirective]; AGroup 11641 1 [sym_kDispId]; AGroup 11643 1 [sym_kPublic];
     AGroup 11645 1 [sym_kMessage]; AGroup 11647 1 [sym_kDeprecated];
     AGroup 11649 1 [sym_kExport]; AGroup 11651 1 [sym_kAlias];
     AGroup 15329 1 [aux_sym_ppUsesBlock_token1]; AGroup 15552 1 [anon_sym_LBRACK];
     SGroup 2862 1 [sym__ppIf]; SGroup 3006 1 [aux_sym__declProc_repeat1];
     SGroup 3880 1 [sym__procAttributeNoExt]; SGroup 3961 1 [sym__procAttributesPp];
     SGroup 14297 1 [sym_procAttribute]; AGroup 3 2 syms_5; AGroup 1539 2 syms_44;
     AGroup 1016 39 syms_33]);
   (26583, 17, [AGroup 5 1 [sym_ppDirective]; AGroup 11641 1 [sym_kDispId]; AGroup 11643 1 [sym_kPublic];
     AGroup 11645 1 [sym_kMessage]; AGroup 11647 1 [sym_kDeprecated];
     AGroup 11649 1 [sym_kExport]; AGroup 11651 1 [sym_kAlias];
     AGroup 15329 1 [aux_sym_ppUsesBlock_token1]; AGroup 15552 1 [anon_sym_LBRACK];
     SGroup 2862 1 [sym__ppIf]; SGroup 3037 1 [aux_sym__declProc_repeat1];
     SGroup 3880 1 [sym__procAttributeNoExt]; SGroup 3961 1 [sym__procAttributesPp];
     SGroup 14297 1 [sym_procAttribute]; AGroup 3 2 syms_5; AGroup 2621 2 syms_44;
     AGroup 1016 39 syms_33]);
   (26675, 17, [AGroup 5 1 [sym_ppDirective]; AGroup 11641 1 [sym_kDispId]; AGroup 11643 1 [sym_kPublic];
     AGroup 11645 1 [sym_kMessage]; AGroup 11647 1 [sym_kDeprecated];
     AGroup 11649 1 [sym_kExport]; AGroup 11651 1 [sym_kAlias];
     AGroup 15329 1 [aux_sym_ppUsesBlock_token1]; AGroup 15552 1 [anon_sym_LBRACK];
     SGroup 2862 1 [sym__ppIf]; SGroup 2969 1 [aux_sym__declProc_repeat1];
     SGroup 3880 1 [sym__procAttributeNoExt]; SGroup 3961 1 [sym__procAttributesPp];
     SGroup 14297 1 [sym_procAttribute]; AGroup 3 2 syms_5; AGroup 4113 2 syms_44;
     AGroup 1016 39 syms_33]);
   (26767, 17, [AGroup 5 1 [sym_ppDirective]; AGroup 11641 1 [sym_kDispId]; AGroup 11643 1 [sym_kPublic];
     AGroup 11645 1 [sym_kMessage]; AGroup 11647 1 [sym_kDeprecated];
     AGroup 11649 1 [sym_kExport]; AGroup 11651 1 [sym_kAlias];
     AGroup 15329 1 [aux_sym_ppUsesBlock_token1]; AGroup 15552 1 [anon_sym_LBRACK];
     SGroup 2862 1 [sym__ppIf]; SGroup 3037 1 [aux_sym__declProc_repeat1];
     SGroup 3880 1 [sym__procAttributeNoExt]; SGroup 3961 1 [sym__procAttributesPp];
     SGroup 14297 1 [sym_procAttribute]; AGroup 3 2 syms_5; AGroup 1572 2 syms_44;
     AGroup 1016 39 syms_33]);
   (26859, 17, [AGroup 5 1 [sym_ppDirective]; AGroup 11641 1 [sym_kDispId]; AGroup 11643 1 [sym_kPublic];
     AGroup 11645 1 [sym_kMessage]; AGroup 11647 1 [sym_kDeprecated];
     AGroup 11649 1 [sym_kExport]; AGroup 11651 1 [sym_kAlias];
     AGroup 15329 1 [aux_sym_ppUsesBlock_token1]; AGroup 15552 1 [anon_sym_LBRACK];
     SGroup 2862 1 [sym__ppIf]; SGroup 2961 1 [aux_sym__declProc_repeat1];
     SGroup 3880 1 [sym__procAttributeNoExt]; SGroup 3961 1 [sym__procAttributesPp];
     SGroup 14297 1 [sym_procAttribute]; AGroup 3 2 syms_5; AGroup 2652 2 syms_44;
     AGroup 1016 39 syms_33]);
   (26951, 17, [AGroup 5 1 [sym_ppDirective]; AGroup 11641 1 [sym_kDispId]; AGroup 11643 1 [sym_kPublic];
     AGroup 11645 1 [sym_kMessage]; AGroup 11647 1 [sym_kDeprecated];
     AGroup 11649 1 [sym_kExport]; AGroup 11651 1 [sym_kAlias];
     AGroup 15329 1 [aux_sym_ppUsesBlock_token1]; AGroup 15552 1 [anon_sym_LBRACK];
     SGroup 2862 1 [sym__ppIf]; SGroup 2964 1 [aux_sym__declProc_repeat1];
     SGroup 3880 1 [sym__procAttributeNoExt]; SGroup 3961 1 [sym__procAttributesPp];
     SGroup 14297 1 [sym_procAttribute]; AGroup 3 2 syms_5; AGroup 2685 2 syms_44;
     AGroup 1016 39 syms_33]);
   (27043, 17, [AGroup 5 1 [sym_ppDirective]; AGroup 11641 1 [sym_kDispId]; AGroup 11643 1 [sym_kPublic];
     AGroup 11645 1 [sym_kMessage]; AGroup 11647 1 [sym_kDeprecated];
     AGroup 11649 1 [sym_kExport]; AGroup 11651 1 [sym_kAlias];
     AGroup 15329 1 [aux_sym_ppUsesBlock_token1]; AGroup 15552 1 [anon_sym_LBRACK];
     SGroup 2862 1 [sym__ppIf]; SGroup 3047 1 [aux_sym__declProc_repeat1];
     SGroup 3880 1 [sym__procAttributeNoExt]; SGroup 3961 1 [sym__procAttributesPp];
     SGroup 14297 1 [sym_procAttribute]; AGroup 3 2 syms_5; AGroup 1617 2 syms_44;
     AGroup 1016 39 syms_33]);
   (27135, 17, [AGroup 5 1 [sym_ppDirective]; AGroup 11641 1 [sym_kDispId]; AGroup 11643 1 [sym_kPublic];
     AGroup 11645 1 [sym_kMessage]; AGroup 11647 1 [sym_kDeprecated];
     AGroup 11649 1 [sym_kExport]; AGroup 11651 1 [sym_kAlias];
     AGroup 15329 1 [aux_sym_ppUsesBlock_token1]; AGroup 15552 1 [anon_sym_LBRACK];
     SGroup 2862 1 [sym__ppIf]; SGroup 3051 1 [aux_sym__declProc_repeat1];
     SGroup 3880 1 [sym__procAttributeNoExt]; SGroup 3961 1 [sym__procAttributesPp];
     SGroup 14297 1 [sym_procAttribute]; AGroup 3 2 syms_5; AGroup 1648 2 syms_44;
     AGroup 1016 39 syms_33]);
   (27227, 17, [AGroup 5 1 [sym_ppDirective]; AGroup 11641 1 [sym_kDispId]; AGroup 11643 1 [sym_kPublic];
     AGroup 11645 1 [sym_kMessage]; AGroup 11647 1 [sym_kDeprecated];
     AGroup 11649 1 [sym_kExport]; AGroup 11651 1 [sym_kAlias];
     AGroup 15329 1 [aux_sym_ppUsesBlock_token1]; AGroup 15552 1 [anon_sym_LBRACK];
     SGroup 2862 1 [sym__ppIf]; SGroup 3037 1 [aux_sym__declProc_repeat1];
     SGroup 3880 1 [sym__procAttributeNoExt]; SGroup 3961 1 [sym__procAttributesPp];
     SGroup 14297 1 [sym_procAttribute]; AGroup 3 2 syms_5; AGroup 4147 2 syms_44;
     AGroup 1016 39 syms_33]);
   (27319, 17, [AGroup 5 1 [sym_ppDirective]; AGroup 11641 1 [sym_kDispId]; AGroup 11643 1 [sym_kPublic];
     AGroup 11645 1 [sym_kMessage]; AGroup 11647 1 [sym_kDeprecated];
     AGroup 11649 1 [sym_kExport]; AGroup 11651 1 [sym_kAlias];
     AGroup 15329 1 [aux_sym_ppUsesBlock_token1]; AGroup 15552 1 [anon_sym_LBRACK];
     SGroup 2862 1 [sym__ppIf]; SGroup 3037 1 [aux_sym__declProc_repeat1];
     SGroup 3880 1 [sym__procAttributeNoExt]; SGroup 3961 1 [sym__procAttributesPp];
     SGroup 14297 1 [sym_procAttribute]; AGroup 3 2 syms_5; AGroup 2732 2 syms_44;
     AGroup 1016 39 syms_33]);
   (27411, 17, [AGroup 5 1 [sym_ppDirective]; AGroup 11641 1 [sym_kDispId]; AGroup 11643 1 [sym_kPublic];
     AGroup 11645 1 [sym_kMessage]; AGroup 11647 1 [sym_kDeprecated];
     AGroup 11649 1 [sym_kExport]; AGroup 11651 1 [sym_kAlias];
     AGroup 15329 1 [aux_sym_ppUsesBlock_token1]; AGroup 15552 1 [anon_sym_LBRACK];
     SGroup 2862 1 [sym__ppIf]; SGroup 2938 1 [aux_sym__declProc_repeat1];
     SGroup 3880 1 [sym__procAttributeNoExt]; SGroup 3961 1 [sym__procAttributesPp];
     SGroup 14297 1 [sym_procAttribute]; AGroup 3 2 syms_5; AGroup 6165 2 syms_44;
     AGroup 1016 39 syms_33]);
   (27503, 17, [AGroup 5 1 [sym_ppDirective]; AGroup 11641 1 [sym_kDispId]; AGroup 11643 1 [sym_kPublic];
     AGroup 11645 1 [sym_kMessage]; AGroup 11647 1 [sym_kDeprecated];
     AGroup 11649 1 [sym_kExport]; AGroup 11651 1 [sym_kAlias];
     AGroup 15329 1 [aux_sym_ppUsesBlock_token1]; AGroup 15552 1 [anon_sym_LBRACK];
     SGroup 2862 1 [sym__ppIf]; SGroup 2950 1 [aux_sym__declProc_repeat1];
     SGroup 3880 1 [sym__procAttributeNoExt]; SGroup 3961 1 [sym__procAttributesPp];
     SGroup 14297 1 [sym_procAttribute]; AGroup 3 2 syms_5; AGroup 5626 2 syms_44;
     AGroup 1016 39 syms_33]);
   (27595, 17, [AGroup 5 1 [sym_ppDirective]; AGroup 1180 1 [aux_sym_ppUsesBlock_token1];
     AGroup 1186 1 [sym_kDispId]; AGroup 1189 1 [sym_kPublic]; AGroup 1192 1 [sym_kMessage];
     AGroup 1195 1 [sym_kDeprecated]; AGroup 1198 1 [sym_kExport]; AGroup 1201 1 [sym_kAlias];
     AGroup 15598 1 [anon_sym_LBRACK]; SGroup 2862 1 [sym__ppIf];
     SGroup 3037 1 [aux_sym__declProc_repeat1]; SGroup 3880 1 [sym__procAttributeNoExt];
     SGroup 3961 1 [sym__procAttributesPp]; SGroup 14297 1 [sym_procAttribute];
     AGroup 3 2 syms_5; AGroup 1173 2 syms_44; AGroup 1183 39 syms_33]);
   (27687, 21, [AGroup 5 1 [sym_ppDirective]; AGroup 399 1 [anon_sym_LBRACK];
     AGroup 401 1 [anon_sym_LPAREN]; AGroup 405 1 [anon_sym_POUND];
     AGroup 423 1 [sym_kSpecialize]; AGroup 445 1 [sym_kInherited]; AGroup 451 1 [sym_kString];
     AGroup 15601 1 [sym_kIf]; AGroup 3 2 syms_5; AGroup 403 2 syms_6; AGroup 407 2 syms_7;
     AGroup 409 2 syms_8; AGroup 413 2 syms_9; AGroup 415 2 syms_10; AGroup 439 2 syms_11;
     SGroup 7742 2 syms_12; SGroup 6664 3 syms_13; SGroup 7977 4 syms_14; AGroup 417 5 syms_15;
     AGroup 14747 7 syms_51; SGroup 7478 14 syms_17]);
   (27787, 17, [AGroup 5 1 [sym_ppDirective]; AGroup 11641 1 [sym_kDispId]; AGroup 11643 1 [sym_kPublic];
     AGroup 11645 1 [sym_kMessage]; AGroup 11647 1 [sym_kDeprecated];
     AGroup 11649 1 [sym_kExport]; AGroup 11651 1 [sym_kAlias];
     AGroup 15329 1 [aux_sym_ppUsesBlock_token1]; AGroup 15552 1 [anon_sym_LBRACK];
     SGroup 2862 1 [sym__ppIf]; SGroup 3037 1 [aux_sym__declProc_repeat1];
     SGroup 3880 1 [sym__procAttributeNoExt]; SGroup 3961 1 [sym__procAttributesPp];
     SGroup 14297 1 [sym_procAttribute]; AGroup 3 2 syms_5; AGroup 7146 2 syms_44;
     AGroup 1016 39 syms_33]);
   (27879, 17, [AGroup 5 1 [sym_ppDirective]; AGroup 11641 1 [sym_kDispId]; AGroup 11643 1 [sym_kPublic];
     AGroup 11645 1 [sym_kMessage]; AGroup 11647 1 [sym_kDeprecated];
     AGroup 11649 1 [sym_kExport]; AGroup 11651 1 [sym_kAlias];
     AGroup 15329 1 [aux_sym_ppUsesBlock_token1]; AGroup 15552 1 [anon_sym_LBRACK];
     SGroup 2862 1 [sym__ppIf]; SGroup 3037 1 [aux_sym__declProc_repeat1];
     SGroup 3880 1 [sym__procAttributeNoExt]; SGroup 3961 1 [sym__procAttributesPp];
     SGroup 14297 1 [sym_procAttribute]; AGroup 3 2 syms_5; AGroup 6209 2 syms_44;
     AGroup 1016 39 syms_33]);
   (27971, 17, [AGroup 5 1 [sym_ppDirective]; AGroup 11641 1 [sym_kDispId]; AGroup 11643 1 [sym_kPublic];
     AGroup 11645 1 [sym_kMessage]; AGroup 11647 1 [sym_kDeprecated];
     AGroup 11649 1 [sym_kExport]; AGroup 11651 1 [sym_kAlias];
     AGroup 15329 1 [aux_sym_ppUsesBlock_token1]; AGroup 15552 1 [anon_sym_LBRACK];
     SGroup 2862 1 [sym__ppIf]; SGroup 3037 1 [aux_sym__declProc_repeat1];
     SGroup 3880 1 [sym__procAttributeNoExt]; SGroup 3961 1 [sym__procAttributesPp];
     SGroup 14297 1 [sym_procAttribute]; AGroup 3 2 syms_5; AGroup 5466 2 syms_44;
     AGroup 1016 39 syms_33]);
   (28063, 17, [AGroup 5 1 [sym_ppDirective]; AGroup 11641 1 [sym_kDispId]; AGroup 11643 1 [sym_kPublic];
     AGroup 11645 1 [sym_kMessage]; AGroup 11647 1 [sym_kDeprecated];
     AGroup 11649 1 [sym_kExport]; AGroup 11651 1 [sym_kAlias];
     AGroup 15329 1 [aux_sym_ppUsesBlock_token1]; AGroup 15552 1 [anon_sym_LBRACK];
     SGroup 2862 1 [sym__ppIf]; SGroup 2947 1 [aux_sym__declProc_repeat1];
     SGroup 3880 1 [sym__procAttributeNoExt]; SGroup 3961 1 [sym__procAttributesPp];
     SGroup 14297 1 [sym_procAttribute]; AGroup 3 2 syms_5; AGroup 4997 2 syms_44;
     AGroup 1016 39 syms_33]);
   (28155, 5, [AGroup 5 1 [sym_ppDirective]; AGroup 3 2 syms_5; AGroup 15496 7 syms_34;
     AGroup 15403 18 syms_36; AGroup 15494 29 syms_46]);
   (28223, 17, [AGroup 5 1 [sym_ppDirective]; AGroup 11641 1 [sym_kDispId]; AGroup 11643 1 [sym_kPublic];
     AGroup 11645 1 [sym_kMessage]; AGroup 11647 1 [sym_kDeprecated];
     AGroup 11649 1 [sym_kExport]; AGroup 11651 1 [sym_kAlias];
     AGroup 15329 1 [aux_sym_ppUsesBlock_token1]; AGroup 15552 1 [anon_sym_LBRACK];
     SGroup 2862 1 [sym__ppIf]; SGroup 3026 1 [aux_sym__declProc_repeat1];
     SGroup 3880 1 [sym__procAttributeNoExt]; SGroup 3961 1 [sym__procAttributesPp];
     SGroup 14297 1 [sym_procAttribute]; AGroup 3 2 syms_5; AGroup 1992 2 syms_44;
     AGroup 1016 39 syms_33]);
   (28315, 17, [AGroup 5 1 [sym_ppDirective]; AGroup 11641 1 [sym_kDispId]; AGroup 11643 1 [sym_kPublic];
     AGroup 11645 1 [sym_kMessage]; AGroup 11647 1 [sym_kDeprecated];
     AGroup 11649 1 [sym_kExport]; AGroup 11651 1 [sym_kAlias];
     AGroup 15329 1 [aux_sym_ppUsesBlock_token1]; AGroup 15552 1 [anon_sym_LBRACK];
     SGroup 2862 1 [sym__ppIf]; SGroup 3037 1 [aux_sym__declProc_repeat1];
     SGroup 3880 1 [sym__procAttributeNoExt]; SGroup 3961 1 [sym__procAttributesPp];
     SGroup 14297 1 [sym_procAttribute]; AGroup 3 2 syms_5; AGroup 5028 2 syms_44;
     AGroup 1016 39 syms_33]);
   (28407, 17, [AGroup 5 1 [sym_ppDirective]; AGroup 11641 1 [sym_kDispId]; AGroup 11643 1 [sym_kPublic];
     AGroup 11645 1 [sym_kMessage]; AGroup 11647 1 [sym_kDeprecated];
     AGroup 11649 1 [sym_kExport]; AGroup 11651 1 [sym_kAlias];
     AGroup 15329 1 [aux_sym_ppUsesBlock_token1]; AGroup 15552 1 [anon_sym_LBRACK];
     SGroup 2862 1 [sym__ppIf]; SGroup 2975 1 [aux_sym__declProc_repeat1];
     SGroup 3880 1 [sym__procAttributeNoExt]; SGroup 3961 1 [sym__procAttributesPp];
     SGroup 14297 1 [sym_procAttribute]; AGroup 3 2 syms_5; AGroup 5075 2 syms_44;
     AGroup 1016 39 syms_33]);
   (28499, 17, [AGroup 5 1 [sym_ppDirective]; AGroup 11641 1 [sym_kDispId]; AGroup 11643 1 [sym_kPublic];
     AGroup 11645 1 [sym_kMessage]; AGroup 11647 1 [sym_kDeprecated];
     AGroup 11649 1 [sym_kExport]; AGroup 11651 1 [sym_kAlias];
     AGroup 15329 1 [aux_sym_ppUsesBlock_token1]; AGroup 15552 1 [anon_sym_LBRACK];
     SGroup 2862 1 [sym__ppIf]; SGroup 3037 1 [aux_sym__declProc_repeat1];
     SGroup 3880 1 [sym__procAttributeNoExt]; SGroup 3961 1 [sym__procAttributesPp];
     SGroup 14297 1 [sym_procAttribute]; AGroup 3 2 syms_5; AGroup 2023 2 syms_44;
     AGroup 1016 39 syms_33]);
   (28591, 17, [AGroup 5 1 [sym_ppDirective]; AGroup 11641 1 [sym_kDispId]; AGroup 11643 1 [sym_kPublic];
     AGroup 11645 1 [sym_kMessage]; AGroup 11647 1 [sym_kDeprecated];
     AGroup 11649 1 [sym_kExport]; AGroup 11651 1 [sym_kAlias];
     AGroup 15329 1 [aux_sym_ppUsesBlock_token1]; AGroup 15552 1 [anon_sym_LBRACK];
     SGroup 2862 1 [sym__ppIf]; SGroup 3037 1 [aux_sym__declProc_repeat1];
     SGroup 3880 1 [sym__procAttributeNoExt]; SGroup 3961 1 [sym__procAttributesPp];
     SGroup 14297 1 [sym_procAttribute]; AGroup 3 2 syms_5; AGroup 3787 2 syms_44;
     AGroup 1016 39 syms_33]);
   (28683, 5, [AGroup 5 1 [sym_ppDirective]; AGroup 3 2 syms_5; AGroup 15473 7 syms_34;
     AGroup 15403 18 syms_36; AGroup 15471 29 syms_46]);
   (28751, 5, [AGroup 5 1 [sym_ppDirective]; AGroup 3 2 syms_5; AGroup 15504 7 syms_34;
     AGroup 15403 18 syms_36; AGroup 15502 29 syms_46]);
   (28819, 17, [AGroup 5 1 [sym_ppDirective]; AGroup 11641 1 [sym_kDispId]; AGroup 11643 1 [sym_kPublic];
     AGroup 11645 1 [sym_kMessage]; AGroup 11647 1 [sym_kDeprecated];
     AGroup 11649 1 [sym_kExport]; AGroup 11651 1 [sym_kAlias];
     AGroup 15329 1 [aux_sym_ppUsesBlock_token1]; AGroup 15552 1 [anon_sym_LBRACK];
     SGroup 2862 1 [sym__ppIf]; SGroup 3037 1 [aux_sym__declProc_repeat1];
     SGroup 3880 1 [sym__procAttributeNoExt]; SGroup 3961 1 [sym__procAttributesPp];
     SGroup 14297 1 [sym_procAttribute]; AGroup 3 2 syms_5; AGroup 2056 2 syms_44;
     AGroup 1016 39 syms_33]);
   (28911, 5, [AGroup 5 1 [sym_ppDirective]; AGroup 3 2 syms_5; AGroup 15492 7 syms_34;
     AGroup 15403 18 syms_36; AGroup 15490 29 syms_46]);
   (28979, 5, [AGroup 5 1 [sym_ppDirective]; AGroup 3 2 syms_5; AGroup 15401 7 syms_34;
     AGroup 15403 18 syms_36; AGroup 15399 29 syms_46]);
   (29047, 17, [AGroup 5 1 [sym_ppDirective]; AGroup 11641 1 [sym_kDispId]; AGroup 11643 1 [sym_kPublic];
     AGroup 11645 1 [sym_kMessage]; AGroup 11647 1 [sym_kDeprecated];
     AGroup 11649 1 [sym_kExport]; AGroup 11651 1 [sym_kAlias];
     AGroup 15329 1 [aux_sym_ppUsesBlock_token1]; AGroup 15552 1 [anon_sym_LBRACK];
     SGroup 2862 1 [sym__ppIf]; SGroup 3048 1 [aux_sym__declProc_repeat1];
     SGroup 3880 1 [sym__procAttributeNoExt]; SGroup 3961 1 [sym__procAttributesPp];
     SGroup 14297 1 [sym_procAttribute]; AGroup 3 2 syms_5; AGroup 5657 2 syms_44;
     AGroup 1016 39 syms_33]);
   (29139, 22, [AGroup 5 1 [sym_ppDirective]; AGroup 15556 1 [anon_sym_LBRACK];
     AGroup 15558 1 [anon_sym_LPAREN]; AGroup 15562 1 [anon_sym_POUND];
     AGroup 15574 1 [sym_kSpecialize]; AGroup 15580 1 [sym_kIf]; AGroup 15582 1 [sym_kInherited];
     AGroup 15584 1 [sym_kString]; AGroup 15603 1 [anon_sym_SEMI]; AGroup 3 2 syms_5;
     AGroup 15560 2 syms_6; AGroup 15564 2 syms_7; AGroup 15566 2 syms_8; AGroup 15568 2 syms_9;
     AGroup 15570 2 syms_10; AGroup 15578 2 syms_11; SGroup 7416 2 syms_12;
     SGroup 6479 3 syms_13; SGroup 7793 4 syms_14; AGroup 15572 5 syms_15;
     AGroup 15576 6 syms_45; SGroup 7271 14 syms_17]);
   (29241, 17, [AGroup 5 1 [sym_ppDirective]; AGroup 11641 1 [sym_kDispId]; AGroup 11643 1 [sym_kPublic];
     AGroup 11645 1 [sym_kMessage]; AGroup 11647 1 [sym_kDeprecated];
     AGroup 11649 1 [sym_kExport]; AGroup 11651 1 [sym_kAlias];
     AGroup 15329 1 [aux_sym_ppUsesBlock_token1]; AGroup 15552 1 [anon_sym_LBRACK];
     SGroup 2862 1 [sym__ppIf]; SGroup 2924 1 [aux_sym__declProc_repeat1];
     SGroup 3880 1 [sym__procAttributeNoExt]; SGroup 3961 1 [sym__procAttributesPp];
     SGroup 14297 1 [sym_procAttribute]; AGroup 3 2 syms_5; AGroup 4562 2 syms_44;
     AGroup 1016 39 syms_33]);
   (29333, 21, [AGroup 5 1 [sym_ppDirective]; AGroup 399 1 [anon_sym_LBRACK];
     AGroup 401 1 [anon_sym_LPAREN]; AGroup 405 1 [anon_sym_POUND];
     AGroup 423 1 [sym_kSpecialize]; AGroup 445 1 [sym_kInherited]; AGroup 451 1 [sym_kString];
     AGroup 15601 1 [sym_kIf]; AGroup 3 2 syms_5; AGroup 403 2 syms_6; AGroup 407 2 syms_7;
     AGroup 409 2 syms_8; AGroup 413 2 syms_9; AGroup 415 2 syms_10; AGroup 439 2 syms_11;
     SGroup 7742 2 syms_12; SGroup 6664 3 syms_13; SGroup 8144 4 syms_14; AGroup 417 5 syms_15;
     AGroup 14765 7 syms_51; SGroup 7478 14 syms_17]);
   (29433, 17, [AGroup 5 1 [sym_ppDirective]; AGroup 11641 1 [sym_kDispId]; AGroup 11643 1 [sym_kPublic];
     AGroup 11645 1 [sym_kMessage]; AGroup 11647 1 [sym_kDeprecated];
     AGroup 11649 1 [sym_kExport]; AGroup 11651 1 [sym_kAlias];
     AGroup 15329 1 [aux_sym_ppUsesBlock_token1]; AGroup 15552 1 [anon_sym_LBRACK];
     SGroup 2862 1 [sym__ppIf]; SGroup 2940 1 [aux_sym__declProc_repeat1];
     SGroup 3880 1 [sym__procAttributeNoExt]; SGroup 3961 1 [sym__procAttributesPp];
     SGroup 14297 1 [sym_procAttribute]; AGroup 3 2 syms_5; AGroup 5859 2 syms_44;
     AGroup 1016 39 syms_33])
  ].

(** States 3059 to 3158. *)
Definition small_runs_3059 : list small_run :=
  [
   (29525, 24, [AGroup 5 1 [sym_ppDirective]; AGroup 673 1 [anon_sym_LBRACK];
     AGroup 675 1 [anon_sym_LPAREN]; AGroup 679 1 [anon_sym_POUND];
     AGroup 695 1 [sym_kSpecialize]; AGroup 717 1 [sym_kInherited]; AGroup 15297 1 [sym_kIf];
     AGroup 15605 1 [sym_kHat]; AGroup 15609 1 [sym_kString];
     SGroup 11122 1 [aux_sym_exprTpl_repeat1]; AGroup 3 2 syms_5; AGroup 677 2 syms_6;
     AGroup 681 2 syms_7; AGroup 683 2 syms_8; AGroup 685 2 syms_9; AGroup 687 2 syms_10;
     AGroup 711 2 syms_11; AGroup 15607 2 syms_52; SGroup 7426 2 syms_12; AGroup 689 3 syms_53;
     SGroup 6541 3 syms_13; SGroup 7313 4 syms_14; SGroup 12003 4 syms_31; SGroup 7259 14 syms_17]);
   (29630, 4, [AGroup 5 1 [sym_ppDirective]; AGroup 3 2 syms_5; AGroup 15295 4 syms_25;
     AGroup 15293 49 syms_54]);
   (29695, 4, [AGroup 5 1 [sym_ppDirective]; AGroup 3 2 syms_5; AGroup 15355 4 syms_25;
     AGroup 15353 49 syms_54]);
   (29760, 5, [AGroup 5 1 [sym_ppDirective]; AGroup 3 2 syms_5; AGroup 15401 4 syms_25;
     AGroup 15403 18 syms_36; AGroup 15399 31 syms_55]);
   (29827, 24, [AGroup 5 1 [sym_ppDirective]; AGroup 609 1 [anon_sym_LBRACK];
     AGroup 611 1 [anon_sym_LPAREN]; AGroup 615 1 [anon_sym_POUND];
     AGroup 631 1 [sym_kSpecialize]; AGroup 651 1 [sym_kInherited]; AGroup 14951 1 [sym_kIf];
     AGroup 15605 1 [sym_kHat]; AGroup 15613 1 [sym_kString];
     SGroup 11151 1 [aux_sym_exprTpl_repeat1]; AGroup 3 2 syms_5; AGroup 613 2 syms_6;
     AGroup 617 2 syms_7; AGroup 619 2 syms_8; AGroup 621 2 syms_9; AGroup 623 2 syms_10;
     AGroup 645 2 syms_11; AGroup 15611 2 syms_52; SGroup 7084 2 syms_12; AGroup 625 3 syms_53;
     SGroup 6066 3 syms_13; SGroup 7004 4 syms_14; SGroup 11953 4 syms_31; SGroup 7013 14 syms_17]);
   (29932, 24, [AGroup 5 1 [sym_ppDirective]; AGroup 15605 1 [sym_kHat]; AGroup 15615 1 [anon_sym_LBRACK];
     AGroup 15617 1 [anon_sym_LPAREN]; AGroup 15621 1 [anon_sym_POUND];
     AGroup 15635 1 [sym_kSpecialize]; AGroup 15639 1 [sym_kIf]; AGroup 15641 1 [sym_kInherited];
     AGroup 15643 1 [sym_kString]; SGroup 11222 1 [aux_sym_exprTpl_repeat1]; AGroup 3 2 syms_5;
     AGroup 15619 2 syms_6; AGroup 15623 2 syms_7; AGroup 15625 2 syms_8; AGroup 15627 2 syms_9;
     AGroup 15629 2 syms_10; AGroup 15633 2 syms_52; AGroup 15637 2 syms_11;
     SGroup 8200 2 syms_12; AGroup 15631 3 syms_53; SGroup 7203 3 syms_13; SGroup 8041 4 syms_14;
     SGroup 11927 4 syms_31; SGroup 8033 14 syms_17]);
   (30037, 5, [AGroup 5 1 [sym_ppDirective]; AGroup 3 2 syms_5; AGroup 15439 4 syms_25;
     AGroup 15403 18 syms_36; AGroup 15437 31 syms_55]);
   (30104, 5, [AGroup 5 1 [sym_ppDirective]; AGroup 3 2 syms_5; AGroup 15488 4 syms_25;
     AGroup 15403 18 syms_36; AGroup 15486 31 syms_55]);
   (30171, 5, [AGroup 5 1 [sym_ppDirective]; AGroup 3 2 syms_5; AGroup 15496 4 syms_25;
     AGroup 15403 18 syms_36; AGroup 15494 31 syms_55]);
   (30238, 33, [AGroup 5 1 [sym_ppDirective]; AGroup 14849 1 [anon_sym_LPAREN];
     AGroup 14853 1 [anon_sym_POUND]; AGroup 14859 1 [aux_sym_ppUsesBlock_token1];
     AGroup 14863 1 [sym_kHat]; AGroup 14865 1 [sym_ppFragmentExpr];
     AGroup 14867 1 [sym_identifier]; AGroup 14871 1 [sym_kSpecialize];
     AGroup 14873 1 [sym_kReference]; AGroup 14875 1 [sym_kArray]; AGroup 14881 1 [sym_kFile];
     AGroup 14889 1 [sym_kSet]; AGroup 14891 1 [sym_kString]; AGroup 15387 1 [sym_kClass];
     AGroup 15391 1 [sym_kPacked]; AGroup 15393 1 [sym_kRecord]; AGroup 15645 1 [sym_kHelper];
     SGroup 3870 1 [sym__ppIf]; SGroup 10605 1 [sym__subRangeUnary];
     SGroup 10614 1 [sym__subRangeBinary]; SGroup 10620 1 [sym__subRangeCall];
     SGroup 14861 1 [sym_type]; AGroup 3 2 syms_5; AGroup 14851 2 syms_6; AGroup 14855 2 syms_7;
     AGroup 14857 2 syms_8; AGroup 14861 2 syms_9; AGroup 14883 2 syms_11;
     SGroup 10647 2 syms_12; SGroup 10482 3 syms_13; SGroup 11313 3 syms_30;
     SGroup 10505 4 syms_31; SGroup 12384 10 syms_32]);
   (30361, 25, [AGroup 5 1 [sym_ppDirective]; AGroup 15647 1 [anon_sym_LBRACK];
     AGroup 15649 1 [anon_sym_LPAREN]; AGroup 15653 1 [anon_sym_POUND];
     AGroup 15665 1 [sym_identifier]; AGroup 15667 1 [sym_kSpecialize]; AGroup 15671 1 [sym_kIf];
     AGroup 15673 1 [sym_kInherited]; AGroup 15675 1 [sym_kString];
     SGroup 3258 1 [aux_sym_recInitializer_repeat1];
     SGroup 3470 1 [aux_sym_arrInitializer_repeat1]; SGroup 13383 1 [sym_recInitializerField];
     AGroup 3 2 syms_5; AGroup 15651 2 syms_6; AGroup 15655 2 syms_7; AGroup 15657 2 syms_8;
     AGroup 15659 2 syms_9; AGroup 15661 2 syms_10; AGroup 15669 2 syms_11;
     SGroup 8129 2 syms_12; SGroup 7100 3 syms_13; SGroup 12774 3 syms_56;
     AGroup 15663 4 syms_57; SGroup 9495 4 syms_14; SGroup 7786 14 syms_17]);
   (30468, 24, [AGroup 5 1 [sym_ppDirective]; AGroup 15605 1 [sym_kHat]; AGroup 15677 1 [anon_sym_LBRACK];
     AGroup 15679 1 [anon_sym_LPAREN]; AGroup 15683 1 [anon_sym_POUND];
     AGroup 15697 1 [sym_kSpecialize]; AGroup 15701 1 [sym_kIf]; AGroup 15703 1 [sym_kInherited];
     AGroup 15705 1 [sym_kString]; SGroup 11079 1 [aux_sym_exprTpl_repeat1]; AGroup 3 2 syms_5;
     AGroup 15681 2 syms_6; AGroup 15685 2 syms_7; AGroup 15687 2 syms_8; AGroup 15689 2 syms_9;
     AGroup 15691 2 syms_10; AGroup 15695 2 syms_52; AGroup 15699 2 syms_11;
     SGroup 8792 2 syms_12; AGroup 15693 3 syms_53; SGroup 7321 3 syms_13; SGroup 8462 4 syms_14;
     SGroup 12031 4 syms_31; SGroup 8443 14 syms_17]);
   (30573, 24, [AGroup 5 1 [sym_ppDirective]; AGroup 9634 1 [anon_sym_LBRACK];
     AGroup 9636 1 [anon_sym_LPAREN]; AGroup 9640 1 [anon_sym_POUND];
     AGroup 9656 1 [sym_kSpecialize]; AGroup 9674 1 [sym_kInherited]; AGroup 15506 1 [sym_kIf];
     AGroup 15605 1 [sym_kHat]; AGroup 15709 1 [sym_kString];
     SGroup 11072 1 [aux_sym_exprTpl_repeat1]; AGroup 3 2 syms_5; AGroup 9638 2 syms_6;
     AGroup 9642 2 syms_7; AGroup 9644 2 syms_8; AGroup 9646 2 syms_9; AGroup 9648 2 syms_10;
     AGroup 9668 2 syms_11; AGroup 15707 2 syms_52; SGroup 7552 2 syms_12; AGroup 9650 3 syms_53;
     SGroup 6534 3 syms_13; SGroup 7345 4 syms_14; SGroup 11877 4 syms_31; SGroup 7341 14 syms_17]);
   (30678, 24, [AGroup 5 1 [sym_ppDirective]; AGroup 15605 1 [sym_kHat]; AGroup 15711 1 [anon_sym_LBRACK];
     AGroup 15713 1 [anon_sym_LPAREN]; AGroup 15717 1 [anon_sym_POUND];
     AGroup 15731 1 [sym_kSpecialize]; AGroup 15735 1 [sym_kIf]; AGroup 15737 1 [sym_kInherited];
     AGroup 15739 1 [sym_kString]; SGroup 11092 1 [aux_sym_exprTpl_repeat1]; AGroup 3 2 syms_5;
     AGroup 15715 2 syms_6; AGroup 15719 2 syms_7; AGroup 15721 2 syms_8; AGroup 15723 2 syms_9;
     AGroup 15725 2 syms_10; AGroup 15729 2 syms_52; AGroup 15733 2 syms_11;
     SGroup 9361 2 syms_12; AGroup 15727 3 syms_53; SGroup 7548 3 syms_13; SGroup 8950 4 syms_14;
     SGroup 11888 4 syms_31; SGroup 8938 14 syms_17]);
   (30783, 33, [AGroup 5 1 [sym_ppDirective]; AGroup 14849 1 [anon_sym_LPAREN];
     AGroup 14853 1 [anon_sym_POUND]; AGroup 14859 1 [aux_sym_ppUsesBlock_token1];
     AGroup 14863 1 [sym_kHat]; AGroup 14865 1 [sym_ppFragmentExpr];
     AGroup 14867 1 [sym_identifier]; AGroup 14871 1 [sym_kSpecialize];
     AGroup 14873 1 [sym_kReference]; AGroup 14875 1 [sym_kArray]; AGroup 14881 1 [sym_kFile];
     AGroup 14889 1 [sym_kSet]; AGroup 14891 1 [sym_kString]; AGroup 15387 1 [sym_kClass];
     AGroup 15391 1 [sym_kPacked]; AGroup 15393 1 [sym_kRecord]; AGroup 15645 1 [sym_kHelper];
     SGroup 3870 1 [sym__ppIf]; SGroup 10605 1 [sym__subRangeUnary];
     SGroup 10614 1 [sym__subRangeBinary]; SGroup 10620 1 [sym__subRangeCall];
     SGroup 14262 1 [sym_type]; AGroup 3 2 syms_5; AGroup 14851 2 syms_6; AGroup 14855 2 syms_7;
     AGroup 14857 2 syms_8; AGroup 14861 2 syms_9; AGroup 14883 2 syms_11;
     SGroup 10647 2 syms_12; SGroup 10482 3 syms_13; SGroup 11313 3 syms_30;
     SGroup 10505 4 syms_31; SGroup 12384 10 syms_32]);
   (30906, 24, [AGroup 5 1 [sym_ppDirective]; AGroup 7968 1 [anon_sym_LBRACK];
     AGroup 7970 1 [anon_sym_LPAREN]; AGroup 7974 1 [anon_sym_POUND];
     AGroup 7990 1 [sym_kSpecialize]; AGroup 8010 1 [sym_kInherited]; AGroup 15071 1 [sym_kIf];
     AGroup 15605 1 [sym_kHat]; AGroup 15743 1 [sym_kString];
     SGroup 11097 1 [aux_sym_exprTpl_repeat1]; AGroup 3 2 syms_5; AGroup 7972 2 syms_6;
     AGroup 7976 2 syms_7; AGroup 7978 2 syms_8; AGroup 7980 2 syms_9; AGroup 7982 2 syms_10;
     AGroup 8004 2 syms_11; AGroup 15741 2 syms_52; SGroup 7299 2 syms_12; AGroup 7984 3 syms_53;
     SGroup 6388 3 syms_13; SGroup 7142 4 syms_14; SGroup 11884 4 syms_31; SGroup 7138 14 syms_17]);
   (31011, 24, [AGroup 5 1 [sym_ppDirective]; AGroup 15605 1 [sym_kHat]; AGroup 15647 1 [anon_sym_LBRACK];
     AGroup 15653 1 [anon_sym_POUND]; AGroup 15667 1 [sym_kSpecialize];
     AGroup 15673 1 [sym_kInherited]; AGroup 15745 1 [anon_sym_LPAREN]; AGroup 15755 1 [sym_kIf];
     AGroup 15757 1 [sym_kString]; SGroup 11132 1 [aux_sym_exprTpl_repeat1]; AGroup 3 2 syms_5;
     AGroup 15651 2 syms_6; AGroup 15655 2 syms_7; AGroup 15657 2 syms_8; AGroup 15669 2 syms_11;
     AGroup 15747 2 syms_9; AGroup 15749 2 syms_10; AGroup 15753 2 syms_52;
     SGroup 8129 2 syms_12; AGroup 15751 3 syms_53; SGroup 7100 3 syms_13; SGroup 9584 4 syms_14;
     SGroup 11924 4 syms_31; SGroup 8464 14 syms_17]);
   (31116, 24, [AGroup 5 1 [sym_ppDirective]; AGroup 15605 1 [sym_kHat]; AGroup 15647 1 [anon_sym_LBRACK];
     AGroup 15653 1 [anon_sym_POUND]; AGroup 15667 1 [sym_kSpecialize]; AGroup 15671 1 [sym_kIf];
     AGroup 15673 1 [sym_kInherited]; AGroup 15745 1 [anon_sym_LPAREN];
     AGroup 15757 1 [sym_kString]; SGroup 11132 1 [aux_sym_exprTpl_repeat1]; AGroup 3 2 syms_5;
     AGroup 15651 2 syms_6; AGroup 15655 2 syms_7; AGroup 15657 2 syms_8; AGroup 15659 2 syms_9;
     AGroup 15661 2 syms_10; AGroup 15669 2 syms_11; AGroup 15759 2 syms_52;
     SGroup 8129 2 syms_12; AGroup 15663 3 syms_53; SGroup 7100 3 syms_13; SGroup 8800 4 syms_14;
     SGroup 11924 4 syms_31; SGroup 7786 14 syms_17]);
   (31221, 24, [AGroup 5 1 [sym_ppDirective]; AGroup 15605 1 [sym_kHat]; AGroup 15761 1 [anon_sym_LBRACK];
     AGroup 15763 1 [anon_sym_LPAREN]; AGroup 15767 1 [anon_sym_POUND];
     AGroup 15781 1 [sym_kSpecialize]; AGroup 15785 1 [sym_kIf]; AGroup 15787 1 [sym_kInherited];
     AGroup 15789 1 [sym_kString]; SGroup 11171 1 [aux_sym_exprTpl_repeat1]; AGroup 3 2 syms_5;
     AGroup 15765 2 syms_6; AGroup 15769 2 syms_7; AGroup 15771 2 syms_8; AGroup 15773 2 syms_9;
     AGroup 15775 2 syms_10; AGroup 15779 2 syms_52; AGroup 15783 2 syms_11;
     SGroup 9180 2 syms_12; AGroup 15777 3 syms_53; SGroup 7467 3 syms_13; SGroup 8808 4 syms_14;
     SGroup 12048 4 syms_31; SGroup 8804 14 syms_17]);
   (31326, 24, [AGroup 5 1 [sym_ppDirective]; AGroup 15605 1 [sym_kHat]; AGroup 15791 1 [anon_sym_LBRACK];
     AGroup 15793 1 [anon_sym_LPAREN]; AGroup 15797 1 [anon_sym_POUND];
     AGroup 15811 1 [sym_kSpecialize]; AGroup 15815 1 [sym_kIf]; AGroup 15817 1 [sym_kInherited];
     AGroup 15819 1 [sym_kString]; SGroup 11156 1 [aux_sym_exprTpl_repeat1]; AGroup 3 2 syms_5;
     AGroup 15795 2 syms_6; AGroup 15799 2 syms_7; AGroup 15801 2 syms_8; AGroup 15803 2 syms_9;
     AGroup 15805 2 syms_10; AGroup 15809 2 syms_52; AGroup 15813 2 syms_11;
     SGroup 8765 2 syms_12; AGroup 15807 3 syms_53; SGroup 7328 3 syms_13; SGroup 8265 4 syms_14;
     SGroup 12018 4 syms_31; SGroup 8252 14 syms_17]);
   (31431, 24, [AGroup 5 1 [sym_ppDirective]; AGroup 14983 1 [anon_sym_LBRACK];
     AGroup 14985 1 [anon_sym_LPAREN]; AGroup 14989 1 [anon_sym_POUND];
     AGroup 15001 1 [sym_kSpecialize]; AGroup 15007 1 [sym_kInherited]; AGroup 15187 1 [sym_kIf];
     AGroup 15605 1 [sym_kHat]; AGroup 15823 1 [sym_kString];
     SGroup 11221 1 [aux_sym_exprTpl_repeat1]; AGroup 3 2 syms_5; AGroup 14987 2 syms_6;
     AGroup 14991 2 syms_7; AGroup 14993 2 syms_8; AGroup 15003 2 syms_11; AGroup 15181 2 syms_9;
     AGroup 15183 2 syms_10; AGroup 15821 2 syms_52; SGroup 7132 2 syms_12;
     AGroup 15185 3 syms_53; SGroup 6248 3 syms_13; SGroup 7213 4 syms_14;
     SGroup 12012 4 syms_31; SGroup 7210 14 syms_17]);
   (31536, 24, [AGroup 5 1 [sym_ppDirective]; AGroup 927 1 [anon_sym_LBRACK];
     AGroup 929 1 [anon_sym_LPAREN]; AGroup 933 1 [anon_sym_POUND];
     AGroup 949 1 [sym_kSpecialize]; AGroup 967 1 [sym_kInherited]; AGroup 15586 1 [sym_kIf];
     AGroup 15605 1 [sym_kHat]; AGroup 15827 1 [sym_kString];
     SGroup 11183 1 [aux_sym_exprTpl_repeat1]; AGroup 3 2 syms_5; AGroup 931 2 syms_6;
     AGroup 935 2 syms_7; AGroup 937 2 syms_8; AGroup 939 2 syms_9; AGroup 941 2 syms_10;
     AGroup 961 2 syms_11; AGroup 15825 2 syms_52; SGroup 7570 2 syms_12; AGroup 943 3 syms_53;
     SGroup 6915 3 syms_13; SGroup 7484 4 syms_14; SGroup 11968 4 syms_31; SGroup 7533 14 syms_17]);
   (31641, 21, [AGroup 5 1 [sym_ppDirective]; AGroup 47 1 [anon_sym_LPAREN]; AGroup 51 1 [anon_sym_POUND];
     AGroup 73 1 [sym_kSpecialize]; AGroup 105 1 [sym_kInherited]; AGroup 117 1 [sym_kString];
     AGroup 11060 1 [anon_sym_LBRACK]; AGroup 15829 1 [sym_kIf]; AGroup 3 2 syms_5;
     AGroup 49 2 syms_6; AGroup 53 2 syms_7; AGroup 55 2 syms_8; AGroup 61 2 syms_9;
     AGroup 63 2 syms_10; AGroup 11080 2 syms_11; SGroup 7888 2 syms_12; SGroup 6994 3 syms_13;
     SGroup 8544 4 syms_14; AGroup 65 5 syms_15; AGroup 14747 6 syms_58; SGroup 7765 14 syms_17]);
   (31740, 24, [AGroup 5 1 [sym_ppDirective]; AGroup 15605 1 [sym_kHat]; AGroup 15831 1 [anon_sym_LBRACK];
     AGroup 15833 1 [anon_sym_LPAREN]; AGroup 15837 1 [anon_sym_POUND];
     AGroup 15851 1 [sym_kSpecialize]; AGroup 15855 1 [sym_kIf]; AGroup 15857 1 [sym_kInherited];
     AGroup 15859 1 [sym_kString]; SGroup 11176 1 [aux_sym_exprTpl_repeat1]; AGroup 3 2 syms_5;
     AGroup 15835 2 syms_6; AGroup 15839 2 syms_7; AGroup 15841 2 syms_8; AGroup 15843 2 syms_9;
     AGroup 15845 2 syms_10; AGroup 15849 2 syms_52; AGroup 15853 2 syms_11;
     SGroup 9267 2 syms_12; AGroup 15847 3 syms_53; SGroup 7556 3 syms_13; SGroup 8696 4 syms_14;
     SGroup 11982 4 syms_31; SGroup 8649 14 syms_17]);
   (31845, 21, [AGroup 5 1 [sym_ppDirective]; AGroup 47 1 [anon_sym_LPAREN]; AGroup 51 1 [anon_sym_POUND];
     AGroup 73 1 [sym_kSpecialize]; AGroup 105 1 [sym_kInherited]; AGroup 117 1 [sym_kString];
     AGroup 11060 1 [anon_sym_LBRACK]; AGroup 15829 1 [sym_kIf]; AGroup 3 2 syms_5;
     AGroup 49 2 syms_6; AGroup 53 2 syms_7; AGroup 55 2 syms_8; AGroup 61 2 syms_9;
     AGroup 63 2 syms_10; AGroup 11080 2 syms_11; SGroup 7888 2 syms_12; SGroup 6994 3 syms_13;
     SGroup 8556 4 syms_14; AGroup 65 5 syms_15; AGroup 14765 6 syms_58; SGroup 7765 14 syms_17]);
   (31944, 24, [AGroup 5 1 [sym_ppDirective]; AGroup 14821 1 [anon_sym_LBRACK];
     AGroup 14823 1 [anon_sym_LPAREN]; AGroup 14827 1 [anon_sym_POUND];
     AGroup 14839 1 [sym_kSpecialize]; AGroup 14843 1 [sym_kIf]; AGroup 14845 1 [sym_kInherited];
     AGroup 15605 1 [sym_kHat]; AGroup 15863 1 [sym_kString];
     SGroup 11120 1 [aux_sym_exprTpl_repeat1]; AGroup 3 2 syms_5; AGroup 14825 2 syms_6;
     AGroup 14829 2 syms_7; AGroup 14831 2 syms_8; AGroup 14833 2 syms_9; AGroup 14835 2 syms_10;
     AGroup 14841 2 syms_11; AGroup 15861 2 syms_52; SGroup 5943 2 syms_12;
     AGroup 14837 3 syms_53; SGroup 3840 3 syms_13; SGroup 5829 4 syms_14;
     SGroup 11693 4 syms_31; SGroup 5828 14 syms_17]);
   (32049, 24, [AGroup 5 1 [sym_ppDirective]; AGroup 15605 1 [sym_kHat]; AGroup 15865 1 [anon_sym_LBRACK];
     AGroup 15867 1 [anon_sym_LPAREN]; AGroup 15871 1 [anon_sym_POUND];
     AGroup 15885 1 [sym_kSpecialize]; AGroup 15889 1 [sym_kIf]; AGroup 15891 1 [sym_kInherited];
     AGroup 15893 1 [sym_kString]; SGroup 11129 1 [aux_sym_exprTpl_repeat1]; AGroup 3 2 syms_5;
     AGroup 15869 2 syms_6; AGroup 15873 2 syms_7; AGroup 15875 2 syms_8; AGroup 15877 2 syms_9;
     AGroup 15879 2 syms_10; AGroup 15883 2 syms_52; AGroup 15887 2 syms_11;
     SGroup 8622 2 syms_12; AGroup 15881 3 syms_53; SGroup 7298 3 syms_13; SGroup 8591 4 syms_14;
     SGroup 11913 4 syms_31; SGroup 8584 14 syms_17]);
   (32154, 4, [AGroup 5 1 [sym_ppDirective]; AGroup 3 2 syms_5; AGroup 15295 4 syms_25;
     AGroup 15293 49 syms_59]);
   (32219, 4, [AGroup 5 1 [sym_ppDirective]; AGroup 3 2 syms_5; AGroup 15355 4 syms_25;
     AGroup 15353 49 syms_59]);
   (32284, 24, [AGroup 5 1 [sym_ppDirective]; AGroup 15605 1 [sym_kHat]; AGroup 15895 1 [anon_sym_LBRACK];
     AGroup 15897 1 [anon_sym_LPAREN]; AGroup 15901 1 [anon_sym_POUND];
     AGroup 15915 1 [sym_kSpecialize]; AGroup 15919 1 [sym_kIf]; AGroup 15921 1 [sym_kInherited];
     AGroup 15923 1 [sym_kString]; SGroup 11127 1 [aux_sym_exprTpl_repeat1]; AGroup 3 2 syms_5;
     AGroup 15899 2 syms_6; AGroup 15903 2 syms_7; AGroup 15905 2 syms_8; AGroup 15907 2 syms_9;
     AGroup 15909 2 syms_10; AGroup 15913 2 syms_52; AGroup 15917 2 syms_11;
     SGroup 8314 2 syms_12; AGroup 15911 3 syms_53; SGroup 7161 3 syms_13; SGroup 8055 4 syms_14;
     SGroup 11703 4 syms_31; SGroup 8003 14 syms_17]);
   (32389, 24, [AGroup 5 1 [sym_ppDirective]; AGroup 15605 1 [sym_kHat]; AGroup 15925 1 [anon_sym_LBRACK];
     AGroup 15927 1 [anon_sym_LPAREN]; AGroup 15931 1 [anon_sym_POUND];
     AGroup 15945 1 [sym_kSpecialize]; AGroup 15949 1 [sym_kIf]; AGroup 15951 1 [sym_kInherited];
     AGroup 15953 1 [sym_kString]; SGroup 11089 1 [aux_sym_exprTpl_repeat1]; AGroup 3 2 syms_5;
     AGroup 15929 2 syms_6; AGroup 15933 2 syms_7; AGroup 15935 2 syms_8; AGroup 15937 2 syms_9;
     AGroup 15939 2 syms_10; AGroup 15943 2 syms_52; AGroup 15947 2 syms_11;
     SGroup 9150 2 syms_12; AGroup 15941 3 syms_53; SGroup 7490 3 syms_13; SGroup 8772 4 syms_14;
     SGroup 11726 4 syms_31; SGroup 8764 14 syms_17]);
   (32494, 24, [AGroup 5 1 [sym_ppDirective]; AGroup 9754 1 [anon_sym_LBRACK];
     AGroup 9756 1 [anon_sym_LPAREN]; AGroup 9760 1 [anon_sym_POUND];
     AGroup 9776 1 [sym_kSpecialize]; AGroup 9794 1 [sym_kInherited]; AGroup 15469 1 [sym_kIf];
     AGroup 15605 1 [sym_kHat]; AGroup 15957 1 [sym_kString];
     SGroup 11134 1 [aux_sym_exprTpl_repeat1]; AGroup 3 2 syms_5; AGroup 9758 2 syms_6;
     AGroup 9762 2 syms_7; AGroup 9764 2 syms_8; AGroup 9766 2 syms_9; AGroup 9768 2 syms_10;
     AGroup 9788 2 syms_11; AGroup 15955 2 syms_52; SGroup 7474 2 syms_12; AGroup 9770 3 syms_53;
     SGroup 6591 3 syms_13; SGroup 7333 4 syms_14; SGroup 11708 4 syms_31; SGroup 7326 14 syms_17]);
   (32599, 22, [AGroup 5 1 [sym_ppDirective]; AGroup 15554 1 [anon_sym_SEMI];
     AGroup 15959 1 [anon_sym_LBRACK]; AGroup 15961 1 [anon_sym_LPAREN];
     AGroup 15965 1 [anon_sym_POUND]; AGroup 15977 1 [sym_kSpecialize]; AGroup 15981 1 [sym_kIf];
     AGroup 15983 1 [sym_kInherited]; AGroup 15985 1 [sym_kString]; AGroup 3 2 syms_5;
     AGroup 15963 2 syms_6; AGroup 15967 2 syms_7; AGroup 15969 2 syms_8; AGroup 15971 2 syms_9;
     AGroup 15973 2 syms_10; AGroup 15979 2 syms_11; SGroup 7734 2 syms_12;
     SGroup 6950 3 syms_13; SGroup 8158 4 syms_14; AGroup 15576 5 syms_60;
     AGroup 15975 5 syms_15; SGroup 7373 14 syms_17]);
   (32700, 24, [AGroup 5 1 [sym_ppDirective]; AGroup 15605 1 [sym_kHat]; AGroup 15987 1 [anon_sym_LBRACK];
     AGroup 15989 1 [anon_sym_LPAREN]; AGroup 15993 1 [anon_sym_POUND];
     AGroup 16007 1 [sym_kSpecialize]; AGroup 16011 1 [sym_kIf]; AGroup 16013 1 [sym_kInherited];
     AGroup 16015 1 [sym_kString]; SGroup 11167 1 [aux_sym_exprTpl_repeat1]; AGroup 3 2 syms_5;
     AGroup 15991 2 syms_6; AGroup 15995 2 syms_7; AGroup 15997 2 syms_8; AGroup 15999 2 syms_9;
     AGroup 16001 2 syms_10; AGroup 16005 2 syms_52; AGroup 16009 2 syms_11;
     SGroup 9525 2 syms_12; AGroup 16003 3 syms_53; SGroup 7769 3 syms_13; SGroup 9341 4 syms_14;
     SGroup 11892 4 syms_31; SGroup 9072 14 syms_17]);
   (32805, 24, [AGroup 5 1 [sym_ppDirective]; AGroup 7422 1 [anon_sym_LBRACK];
     AGroup 7424 1 [anon_sym_LPAREN]; AGroup 7428 1 [anon_sym_POUND];
     AGroup 7444 1 [sym_kSpecialize]; AGroup 7462 1 [sym_kInherited]; AGroup 15135 1 [sym_kIf];
     AGroup 15605 1 [sym_kHat]; AGroup 16019 1 [sym_kString];
     SGroup 11144 1 [aux_sym_exprTpl_repeat1]; AGroup 3 2 syms_5; AGroup 7426 2 syms_6;
     AGroup 7430 2 syms_7; AGroup 7432 2 syms_8; AGroup 7434 2 syms_9; AGroup 7436 2 syms_10;
     AGroup 7456 2 syms_11; AGroup 16017 2 syms_52; SGroup 7250 2 syms_12; AGroup 7438 3 syms_53;
     SGroup 6416 3 syms_13; SGroup 7156 4 syms_14; SGroup 11713 4 syms_31; SGroup 7153 14 syms_17]);
   (32910, 24, [AGroup 5 1 [sym_ppDirective]; AGroup 15605 1 [sym_kHat]; AGroup 16021 1 [anon_sym_LBRACK];
     AGroup 16023 1 [anon_sym_LPAREN]; AGroup 16027 1 [anon_sym_POUND];
     AGroup 16041 1 [sym_kSpecialize]; AGroup 16045 1 [sym_kIf]; AGroup 16047 1 [sym_kInherited];
     AGroup 16049 1 [sym_kString]; SGroup 11148 1 [aux_sym_exprTpl_repeat1]; AGroup 3 2 syms_5;
     AGroup 16025 2 syms_6; AGroup 16029 2 syms_7; AGroup 16031 2 syms_8; AGroup 16033 2 syms_9;
     AGroup 16035 2 syms_10; AGroup 16039 2 syms_52; AGroup 16043 2 syms_11;
     SGroup 9151 2 syms_12; AGroup 16037 3 syms_53; SGroup 7393 3 syms_13; SGroup 8749 4 syms_14;
     SGroup 11718 4 syms_31; SGroup 8705 14 syms_17]);
   (33015, 24, [AGroup 5 1 [sym_ppDirective]; AGroup 15605 1 [sym_kHat]; AGroup 15959 1 [anon_sym_LBRACK];
     AGroup 15961 1 [anon_sym_LPAREN]; AGroup 15965 1 [anon_sym_POUND];
     AGroup 15977 1 [sym_kSpecialize]; AGroup 15981 1 [sym_kIf]; AGroup 15983 1 [sym_kInherited];
     AGroup 16053 1 [sym_kString]; SGroup 11157 1 [aux_sym_exprTpl_repeat1]; AGroup 3 2 syms_5;
     AGroup 15963 2 syms_6; AGroup 15967 2 syms_7; AGroup 15969 2 syms_8; AGroup 15971 2 syms_9;
     AGroup 15973 2 syms_10; AGroup 15979 2 syms_11; AGroup 16051 2 syms_52;
     SGroup 7734 2 syms_12; AGroup 15975 3 syms_53; SGroup 6950 3 syms_13; SGroup 7379 4 syms_14;
     SGroup 11723 4 syms_31; SGroup 7373 14 syms_17]);
   (33120, 33, [AGroup 5 1 [sym_ppDirective]; AGroup 14849 1 [anon_sym_LPAREN];
     AGroup 14853 1 [anon_sym_POUND]; AGroup 14859 1 [aux_sym_ppUsesBlock_token1];
     AGroup 14863 1 [sym_kHat]; AGroup 14865 1 [sym_ppFragmentExpr];
     AGroup 14867 1 [sym_identifier]; AGroup 14871 1 [sym_kSpecialize];
     AGroup 14873 1 [sym_kReference]; AGroup 14875 1 [sym_kArray]; AGroup 14881 1 [sym_kFile];
     AGroup 14889 1 [sym_kSet]; AGroup 14891 1 [sym_kString]; AGroup 15387 1 [sym_kClass];
     AGroup 15391 1 [sym_kPacked]; AGroup 15393 1 [sym_kRecord]; AGroup 15645 1 [sym_kHelper];
     SGroup 3870 1 [sym__ppIf]; SGroup 10605 1 [sym__subRangeUnary];
     SGroup 10614 1 [sym__subRangeBinary]; SGroup 10620 1 [sym__subRangeCall];
     SGroup 15383 1 [sym_type]; AGroup 3 2 syms_5; AGroup 14851 2 syms_6; AGroup 14855 2 syms_7;
     AGroup 14857 2 syms_8; AGroup 14861 2 syms_9; AGroup 14883 2 syms_11;
     SGroup 10647 2 syms_12; SGroup 10482 3 syms_13; SGroup 11313 3 syms_30;
     SGroup 10505 4 syms_31; SGroup 12384 10 syms_32]);
   (33243, 24, [AGroup 5 1 [sym_ppDirective]; AGroup 47 1 [anon_sym_LPAREN]; AGroup 51 1 [anon_sym_POUND];
     AGroup 73 1 [sym_kSpecialize]; AGroup 105 1 [sym_kInherited];
     AGroup 11060 1 [anon_sym_LBRACK]; AGroup 15605 1 [sym_kHat]; AGroup 15829 1 [sym_kIf];
     AGroup 16057 1 [sym_kString]; SGroup 11200 1 [aux_sym_exprTpl_repeat1]; AGroup 3 2 syms_5;
     AGroup 49 2 syms_6; AGroup 53 2 syms_7; AGroup 55 2 syms_8; AGroup 61 2 syms_9;
     AGroup 63 2 syms_10; AGroup 11080 2 syms_11; AGroup 16055 2 syms_52; SGroup 7888 2 syms_12;
     AGroup 65 3 syms_53; SGroup 6994 3 syms_13; SGroup 7697 4 syms_14; SGroup 12038 4 syms_31;
     SGroup 7765 14 syms_17]);
   (33348, 24, [AGroup 5 1 [sym_ppDirective]; AGroup 15605 1 [sym_kHat]; AGroup 15647 1 [anon_sym_LBRACK];
     AGroup 15653 1 [anon_sym_POUND]; AGroup 15667 1 [sym_kSpecialize];
     AGroup 15673 1 [sym_kInherited]; AGroup 15745 1 [anon_sym_LPAREN];
     AGroup 15757 1 [sym_kString]; AGroup 16065 1 [sym_kIf];
     SGroup 11132 1 [aux_sym_exprTpl_repeat1]; AGroup 3 2 syms_5; AGroup 15651 2 syms_6;
     AGroup 15655 2 syms_7; AGroup 15657 2 syms_8; AGroup 15669 2 syms_11;
     AGroup 15759 2 syms_52; AGroup 16059 2 syms_9; AGroup 16061 2 syms_10;
     SGroup 8129 2 syms_12; AGroup 16063 3 syms_53; SGroup 7100 3 syms_13; SGroup 7912 4 syms_14;
     SGroup 11924 4 syms_31; SGroup 7805 14 syms_17]);
   (33453, 24, [AGroup 5 1 [sym_ppDirective]; AGroup 9986 1 [anon_sym_LBRACK];
     AGroup 9988 1 [anon_sym_LPAREN]; AGroup 9992 1 [anon_sym_POUND];
     AGroup 10008 1 [sym_kSpecialize]; AGroup 10026 1 [sym_kInherited]; AGroup 15588 1 [sym_kIf];
     AGroup 15605 1 [sym_kHat]; AGroup 16069 1 [sym_kString];
     SGroup 11194 1 [aux_sym_exprTpl_repeat1]; AGroup 3 2 syms_5; AGroup 9990 2 syms_6;
     AGroup 9994 2 syms_7; AGroup 9996 2 syms_8; AGroup 9998 2 syms_9; AGroup 10000 2 syms_10;
     AGroup 10020 2 syms_11; AGroup 16067 2 syms_52; SGroup 7660 2 syms_12;
     AGroup 10002 3 syms_53; SGroup 6967 3 syms_13; SGroup 7501 4 syms_14;
     SGroup 11995 4 syms_31; SGroup 7363 14 syms_17]);
   (33558, 24, [AGroup 5 1 [sym_ppDirective]; AGroup 15605 1 [sym_kHat]; AGroup 16071 1 [anon_sym_LBRACK];
     AGroup 16073 1 [anon_sym_LPAREN]; AGroup 16077 1 [anon_sym_POUND];
     AGroup 16091 1 [sym_kSpecialize]; AGroup 16095 1 [sym_kIf]; AGroup 16097 1 [sym_kInherited];
     AGroup 16099 1 [sym_kString]; SGroup 11164 1 [aux_sym_exprTpl_repeat1]; AGroup 3 2 syms_5;
     AGroup 16075 2 syms_6; AGroup 16079 2 syms_7; AGroup 16081 2 syms_8; AGroup 16083 2 syms_9;
     AGroup 16085 2 syms_10; AGroup 16089 2 syms_52; AGroup 16093 2 syms_11;
     SGroup 8930 2 syms_12; AGroup 16087 3 syms_53; SGroup 7257 3 syms_13; SGroup 8335 4 syms_14;
     SGroup 11729 4 syms_31; SGroup 8310 14 syms_17]);
   (33663, 24, [AGroup 5 1 [sym_ppDirective]; AGroup 15605 1 [sym_kHat]; AGroup 16101 1 [anon_sym_LBRACK];
     AGroup 16103 1 [anon_sym_LPAREN]; AGroup 16107 1 [anon_sym_POUND];
     AGroup 16121 1 [sym_kSpecialize]; AGroup 16125 1 [sym_kIf]; AGroup 16127 1 [sym_kInherited];
     AGroup 16129 1 [sym_kString]; SGroup 11172 1 [aux_sym_exprTpl_repeat1]; AGroup 3 2 syms_5;
     AGroup 16105 2 syms_6; AGroup 16109 2 syms_7; AGroup 16111 2 syms_8; AGroup 16113 2 syms_9;
     AGroup 16115 2 syms_10; AGroup 16119 2 syms_52; AGroup 16123 2 syms_11;
     SGroup 8060 2 syms_12; AGroup 16117 3 syms_53; SGroup 7068 3 syms_13; SGroup 7848 4 syms_14;
     SGroup 11734 4 syms_31; SGroup 7822 14 syms_17]);
   (33768, 24, [AGroup 5 1 [sym_ppDirective]; AGroup 15605 1 [sym_kHat]; AGroup 16131 1 [anon_sym_LBRACK];
     AGroup 16133 1 [anon_sym_LPAREN]; AGroup 16137 1 [anon_sym_POUND];
     AGroup 16151 1 [sym_kSpecialize]; AGroup 16155 1 [sym_kIf]; AGroup 16157 1 [sym_kInherited];
     AGroup 16159 1 [sym_kString]; SGroup 11180 1 [aux_sym_exprTpl_repeat1]; AGroup 3 2 syms_5;
     AGroup 16135 2 syms_6; AGroup 16139 2 syms_7; AGroup 16141 2 syms_8; AGroup 16143 2 syms_9;
     AGroup 16145 2 syms_10; AGroup 16149 2 syms_52; AGroup 16153 2 syms_11;
     SGroup 8630 2 syms_12; AGroup 16147 3 syms_53; SGroup 7260 3 syms_13; SGroup 8495 4 syms_14;
     SGroup 11739 4 syms_31; SGroup 8446 14 syms_17]);
   (33873, 24, [AGroup 5 1 [sym_ppDirective]; AGroup 15605 1 [sym_kHat]; AGroup 16161 1 [anon_sym_LBRACK];
     AGroup 16163 1 [anon_sym_LPAREN]; AGroup 16167 1 [anon_sym_POUND];
     AGroup 16181 1 [sym_kSpecialize]; AGroup 16185 1 [sym_kIf]; AGroup 16187 1 [sym_kInherited];
     AGroup 16189 1 [sym_kString]; SGroup 11185 1 [aux_sym_exprTpl_repeat1]; AGroup 3 2 syms_5;
     AGroup 16165 2 syms_6; AGroup 16169 2 syms_7; AGroup 16171 2 syms_8; AGroup 16173 2 syms_9;
     AGroup 16175 2 syms_10; AGroup 16179 2 syms_52; AGroup 16183 2 syms_11;
     SGroup 8481 2 syms_12; AGroup 16177 3 syms_53; SGroup 7166 3 syms_13; SGroup 8160 4 syms_14;
     SGroup 11743 4 syms_31; SGroup 8150 14 syms_17]);
   (33978, 24, [AGroup 5 1 [sym_ppDirective]; AGroup 15605 1 [sym_kHat]; AGroup 16191 1 [anon_sym_LBRACK];
     AGroup 16193 1 [anon_sym_LPAREN]; AGroup 16197 1 [anon_sym_POUND];
     AGroup 16211 1 [sym_kSpecialize]; AGroup 16215 1 [sym_kIf]; AGroup 16217 1 [sym_kInherited];
     AGroup 16219 1 [sym_kString]; SGroup 11188 1 [aux_sym_exprTpl_repeat1]; AGroup 3 2 syms_5;
     AGroup 16195 2 syms_6; AGroup 16199 2 syms_7; AGroup 16201 2 syms_8; AGroup 16203 2 syms_9;
     AGroup 16205 2 syms_10; AGroup 16209 2 syms_52; AGroup 16213 2 syms_11;
     SGroup 7995 2 syms_12; AGroup 16207 3 syms_53; SGroup 7098 3 syms_13; SGroup 7798 4 syms_14;
     SGroup 11748 4 syms_31; SGroup 7895 14 syms_17]);
   (34083, 24, [AGroup 5 1 [sym_ppDirective]; AGroup 15605 1 [sym_kHat]; AGroup 15761 1 [anon_sym_LBRACK];
     AGroup 15763 1 [anon_sym_LPAREN]; AGroup 15767 1 [anon_sym_POUND];
     AGroup 15781 1 [sym_kSpecialize]; AGroup 15787 1 [sym_kInherited];
     AGroup 15789 1 [sym_kString]; AGroup 16229 1 [sym_kIf];
     SGroup 11171 1 [aux_sym_exprTpl_repeat1]; AGroup 3 2 syms_5; AGroup 15765 2 syms_6;
     AGroup 15769 2 syms_7; AGroup 15771 2 syms_8; AGroup 15783 2 syms_11; AGroup 16221 2 syms_9;
     AGroup 16223 2 syms_10; AGroup 16227 2 syms_52; SGroup 9180 2 syms_12;
     AGroup 16225 3 syms_53; SGroup 7467 3 syms_13; SGroup 9237 4 syms_14;
     SGroup 12048 4 syms_31; SGroup 9076 14 syms_17]);
   (34188, 24, [AGroup 5 1 [sym_ppDirective]; AGroup 14735 1 [anon_sym_LBRACK];
     AGroup 14737 1 [anon_sym_LPAREN]; AGroup 14741 1 [anon_sym_POUND];
     AGroup 14755 1 [sym_kSpecialize]; AGroup 14759 1 [sym_kIf]; AGroup 14761 1 [sym_kInherited];
     AGroup 15605 1 [sym_kHat]; AGroup 16233 1 [sym_kString];
     SGroup 11193 1 [aux_sym_exprTpl_repeat1]; AGroup 3 2 syms_5; AGroup 14739 2 syms_6;
     AGroup 14743 2 syms_7; AGroup 14745 2 syms_8; AGroup 14749 2 syms_9; AGroup 14751 2 syms_10;
     AGroup 14757 2 syms_11; AGroup 16231 2 syms_52; SGroup 3618 2 syms_12;
     AGroup 14753 3 syms_53; SGroup 2833 3 syms_13; SGroup 3418 4 syms_14;
     SGroup 11751 4 syms_31; SGroup 3466 14 syms_17]);
   (34293, 24, [AGroup 5 1 [sym_ppDirective]; AGroup 399 1 [anon_sym_LBRACK];
     AGroup 401 1 [anon_sym_LPAREN]; AGroup 405 1 [anon_sym_POUND];
     AGroup 423 1 [sym_kSpecialize]; AGroup 445 1 [sym_kInherited]; AGroup 15601 1 [sym_kIf];
     AGroup 15605 1 [sym_kHat]; AGroup 16237 1 [sym_kString];
     SGroup 11168 1 [aux_sym_exprTpl_repeat1]; AGroup 3 2 syms_5; AGroup 403 2 syms_6;
     AGroup 407 2 syms_7; AGroup 409 2 syms_8; AGroup 413 2 syms_9; AGroup 415 2 syms_10;
     AGroup 439 2 syms_11; AGroup 16235 2 syms_52; SGroup 7742 2 syms_12; AGroup 417 3 syms_53;
     SGroup 6664 3 syms_13; SGroup 7462 4 syms_14; SGroup 11977 4 syms_31; SGroup 7478 14 syms_17]);
   (34398, 24, [AGroup 5 1 [sym_ppDirective]; AGroup 15605 1 [sym_kHat]; AGroup 15647 1 [anon_sym_LBRACK];
     AGroup 15653 1 [anon_sym_POUND]; AGroup 15667 1 [sym_kSpecialize];
     AGroup 15673 1 [sym_kInherited]; AGroup 15745 1 [anon_sym_LPAREN];
     AGroup 15757 1 [sym_kString]; AGroup 16245 1 [sym_kIf];
     SGroup 11132 1 [aux_sym_exprTpl_repeat1]; AGroup 3 2 syms_5; AGroup 15651 2 syms_6;
     AGroup 15655 2 syms_7; AGroup 15657 2 syms_8; AGroup 15669 2 syms_11;
     AGroup 15753 2 syms_52; AGroup 16239 2 syms_9; AGroup 16241 2 syms_10;
     SGroup 8129 2 syms_12; AGroup 16243 3 syms_53; SGroup 7100 3 syms_13; SGroup 8571 4 syms_14;
     SGroup 11924 4 syms_31; SGroup 8367 14 syms_17]);
   (34503, 24, [AGroup 5 1 [sym_ppDirective]; AGroup 15605 1 [sym_kHat]; AGroup 16247 1 [anon_sym_LBRACK];
     AGroup 16249 1 [anon_sym_LPAREN]; AGroup 16253 1 [anon_sym_POUND];
     AGroup 16267 1 [sym_kSpecialize]; AGroup 16271 1 [sym_kIf]; AGroup 16273 1 [sym_kInherited];
     AGroup 16275 1 [sym_kString]; SGroup 11077 1 [aux_sym_exprTpl_repeat1]; AGroup 3 2 syms_5;
     AGroup 16251 2 syms_6; AGroup 16255 2 syms_7; AGroup 16257 2 syms_8; AGroup 16259 2 syms_9;
     AGroup 16261 2 syms_10; AGroup 16265 2 syms_52; AGroup 16269 2 syms_11;
     SGroup 8258 2 syms_12; AGroup 16263 3 syms_53; SGroup 7207 3 syms_13; SGroup 8068 4 syms_14;
     SGroup 11820 4 syms_31; SGroup 8006 14 syms_17]);
   (34608, 24, [AGroup 5 1 [sym_ppDirective]; AGroup 15605 1 [sym_kHat]; AGroup 16277 1 [anon_sym_LBRACK];
     AGroup 16279 1 [anon_sym_LPAREN]; AGroup 16283 1 [anon_sym_POUND];
     AGroup 16297 1 [sym_kSpecialize]; AGroup 16301 1 [sym_kIf]; AGroup 16303 1 [sym_kInherited];
     AGroup 16305 1 [sym_kString]; SGroup 11215 1 [aux_sym_exprTpl_repeat1]; AGroup 3 2 syms_5;
     AGroup 16281 2 syms_6; AGroup 16285 2 syms_7; AGroup 16287 2 syms_8; AGroup 16289 2 syms_9;
     AGroup 16291 2 syms_10; AGroup 16295 2 syms_52; AGroup 16299 2 syms_11;
     SGroup 8374 2 syms_12; AGroup 16293 3 syms_53; SGroup 7217 3 syms_13; SGroup 8080 4 syms_14;
     SGroup 11767 4 syms_31; SGroup 8074 14 syms_17]);
   (34713, 25, [AGroup 5 1 [sym_ppDirective]; AGroup 15647 1 [anon_sym_LBRACK];
     AGroup 15649 1 [anon_sym_LPAREN]; AGroup 15653 1 [anon_sym_POUND];
     AGroup 15665 1 [sym_identifier]; AGroup 15667 1 [sym_kSpecialize]; AGroup 15671 1 [sym_kIf];
     AGroup 15673 1 [sym_kInherited]; AGroup 15675 1 [sym_kString];
     SGroup 3222 1 [aux_sym_recInitializer_repeat1];
     SGroup 3428 1 [aux_sym_arrInitializer_repeat1]; SGroup 14083 1 [sym_recInitializerField];
     AGroup 3 2 syms_5; AGroup 15651 2 syms_6; AGroup 15655 2 syms_7; AGroup 15657 2 syms_8;
     AGroup 15659 2 syms_9; AGroup 15661 2 syms_10; AGroup 15669 2 syms_11;
     SGroup 8129 2 syms_12; SGroup 7100 3 syms_13; SGroup 12639 3 syms_56;
     AGroup 15663 4 syms_57; SGroup 9502 4 syms_14; SGroup 7786 14 syms_17]);
   (34820, 33, [AGroup 5 1 [sym_ppDirective]; AGroup 14849 1 [anon_sym_LPAREN];
     AGroup 14853 1 [anon_sym_POUND]; AGroup 14859 1 [aux_sym_ppUsesBlock_token1];
     AGroup 14863 1 [sym_kHat]; AGroup 14865 1 [sym_ppFragmentExpr];
     AGroup 14867 1 [sym_identifier]; AGroup 14871 1 [sym_kSpecialize];
     AGroup 14873 1 [sym_kReference]; AGroup 14875 1 [sym_kArray]; AGroup 14881 1 [sym_kFile];
     AGroup 14889 1 [sym_kSet]; AGroup 14891 1 [sym_kString]; AGroup 15387 1 [sym_kClass];
     AGroup 15391 1 [sym_kPacked]; AGroup 15393 1 [sym_kRecord]; AGroup 15645 1 [sym_kHelper];
     SGroup 3870 1 [sym__ppIf]; SGroup 10605 1 [sym__subRangeUnary];
     SGroup 10614 1 [sym__subRangeBinary]; SGroup 10620 1 [sym__subRangeCall];
     SGroup 15157 1 [sym_type]; AGroup 3 2 syms_5; AGroup 14851 2 syms_6; AGroup 14855 2 syms_7;
     AGroup 14857 2 syms_8; AGroup 14861 2 syms_9; AGroup 14883 2 syms_11;
     SGroup 10647 2 syms_12; SGroup 10482 3 syms_13; SGroup 11313 3 syms_30;
     SGroup 10505 4 syms_31; SGroup 12384 10 syms_32]);
   (34943, 33, [AGroup 5 1 [sym_ppDirective]; AGroup 14849 1 [anon_sym_LPAREN];
     AGroup 14853 1 [anon_sym_POUND]; AGroup 14859 1 [aux_sym_ppUsesBlock_token1];
     AGroup 14863 1 [sym_kHat]; AGroup 14865 1 [sym_ppFragmentExpr];
     AGroup 14867 1 [sym_identifier]; AGroup 14871 1 [sym_kSpecialize];
     AGroup 14873 1 [sym_kReference]; AGroup 14875 1 [sym_kArray]; AGroup 14881 1 [sym_kFile];
     AGroup 14889 1 [sym_kSet]; AGroup 14891 1 [sym_kString]; AGroup 15387 1 [sym_kClass];
     AGroup 15391 1 [sym_kPacked]; AGroup 15393 1 [sym_kRecord]; AGroup 15645 1 [sym_kHelper];
     SGroup 3870 1 [sym__ppIf]; SGroup 10605 1 [sym__subRangeUnary];
     SGroup 10614 1 [sym__subRangeBinary]; SGroup 10620 1 [sym__subRangeCall];
     SGroup 15865 1 [sym_type]; AGroup 3 2 syms_5; AGroup 14851 2 syms_6; AGroup 14855 2 syms_7;
     AGroup 14857 2 syms_8; AGroup 14861 2 syms_9; AGroup 14883 2 syms_11;
     SGroup 10647 2 syms_12; SGroup 10482 3 syms_13; SGroup 11313 3 syms_30;
     SGroup 10505 4 syms_31; SGroup 12384 10 syms_32]);
   (35066, 33, [AGroup 5 1 [sym_ppDirective]; AGroup 14849 1 [anon_sym_LPAREN];
     AGroup 14853 1 [anon_sym_POUND]; AGroup 14859 1 [aux_sym_ppUsesBlock_token1];
     AGroup 14863 1 [sym_kHat]; AGroup 14865 1 [sym_ppFragmentExpr];
     AGroup 14867 1 [sym_identifier]; AGroup 14871 1 [sym_kSpecialize];
     AGroup 14873 1 [sym_kReference]; AGroup 14875 1 [sym_kArray]; AGroup 14881 1 [sym_kFile];
     AGroup 14889 1 [sym_kSet]; AGroup 14891 1 [sym_kString]; AGroup 15387 1 [sym_kClass];
     AGroup 15391 1 [sym_kPacked]; AGroup 15393 1 [sym_kRecord]; AGroup 15645 1 [sym_kHelper];
     SGroup 3870 1 [sym__ppIf]; SGroup 10605 1 [sym__subRangeUnary];
     SGroup 10614 1 [sym__subRangeBinary]; SGroup 10620 1 [sym__subRangeCall];
     SGroup 14451 1 [sym_type]; AGroup 3 2 syms_5; AGroup 14851 2 syms_6; AGroup 14855 2 syms_7;
     AGroup 14857 2 syms_8; AGroup 14861 2 syms_9; AGroup 14883 2 syms_11;
     SGroup 10647 2 syms_12; SGroup 10482 3 syms_13; SGroup 11313 3 syms_30;
     SGroup 10505 4 syms_31; SGroup 12384 10 syms_32]);
   (35189, 24, [AGroup 5 1 [sym_ppDirective]; AGroup 15605 1 [sym_kHat]; AGroup 16307 1 [anon_sym_LBRACK];
     AGroup 16309 1 [anon_sym_LPAREN]; AGroup 16313 1 [anon_sym_POUND];
     AGroup 16327 1 [sym_kSpecialize]; AGroup 16331 1 [sym_kIf]; AGroup 16333 1 [sym_kInherited];
     AGroup 16335 1 [sym_kString]; SGroup 11174 1 [aux_sym_exprTpl_repeat1]; AGroup 3 2 syms_5;
     AGroup 16311 2 syms_6; AGroup 16315 2 syms_7; AGroup 16317 2 syms_8; AGroup 16319 2 syms_9;
     AGroup 16321 2 syms_10; AGroup 16325 2 syms_52; AGroup 16329 2 syms_11;
     SGroup 8420 2 syms_12; AGroup 16323 3 syms_53; SGroup 7219 3 syms_13; SGroup 8100 4 syms_14;
     SGroup 11792 4 syms_31; SGroup 8095 14 syms_17]);
   (35294, 25, [AGroup 5 1 [sym_ppDirective]; AGroup 15647 1 [anon_sym_LBRACK];
     AGroup 15649 1 [anon_sym_LPAREN]; AGroup 15653 1 [anon_sym_POUND];
     AGroup 15665 1 [sym_identifier]; AGroup 15667 1 [sym_kSpecialize]; AGroup 15671 1 [sym_kIf];
     AGroup 15673 1 [sym_kInherited]; AGroup 15675 1 [sym_kString];
     SGroup 3252 1 [aux_sym_recInitializer_repeat1];
     SGroup 3448 1 [aux_sym_arrInitializer_repeat1]; SGroup 13457 1 [sym_recInitializerField];
     AGroup 3 2 syms_5; AGroup 15651 2 syms_6; AGroup 15655 2 syms_7; AGroup 15657 2 syms_8;
     AGroup 15659 2 syms_9; AGroup 15661 2 syms_10; AGroup 15669 2 syms_11;
     SGroup 8129 2 syms_12; SGroup 7100 3 syms_13; SGroup 12792 3 syms_56;
     AGroup 15663 4 syms_57; SGroup 9392 4 syms_14; SGroup 7786 14 syms_17]);
   (35401, 24, [AGroup 5 1 [sym_ppDirective]; AGroup 15605 1 [sym_kHat]; AGroup 16337 1 [anon_sym_LBRACK];
     AGroup 16339 1 [anon_sym_LPAREN]; AGroup 16343 1 [anon_sym_POUND];
     AGroup 16357 1 [sym_kSpecialize]; AGroup 16361 1 [sym_kIf]; AGroup 16363 1 [sym_kInherited];
     AGroup 16365 1 [sym_kString]; SGroup 11196 1 [aux_sym_exprTpl_repeat1]; AGroup 3 2 syms_5;
     AGroup 16341 2 syms_6; AGroup 16345 2 syms_7; AGroup 16347 2 syms_8; AGroup 16349 2 syms_9;
     AGroup 16351 2 syms_10; AGroup 16355 2 syms_52; AGroup 16359 2 syms_11;
     SGroup 7828 2 syms_12; AGroup 16353 3 syms_53; SGroup 7011 3 syms_13; SGroup 7569 4 syms_14;
     SGroup 11758 4 syms_31; SGroup 7566 14 syms_17]);
   (35506, 33, [AGroup 5 1 [sym_ppDirective]; AGroup 14849 1 [anon_sym_LPAREN];
     AGroup 14853 1 [anon_sym_POUND]; AGroup 14859 1 [aux_sym_ppUsesBlock_token1];
     AGroup 14863 1 [sym_kHat]; AGroup 14865 1 [sym_ppFragmentExpr];
     AGroup 14867 1 [sym_identifier]; AGroup 14871 1 [sym_kSpecialize];
     AGroup 14873 1 [sym_kReference]; AGroup 14875 1 [sym_kArray]; AGroup 14881 1 [sym_kFile];
     AGroup 14889 1 [sym_kSet]; AGroup 14891 1 [sym_kString]; AGroup 15387 1 [sym_kClass];
     AGroup 15391 1 [sym_kPacked]; AGroup 15393 1 [sym_kRecord]; AGroup 15645 1 [sym_kHelper];
     SGroup 3870 1 [sym__ppIf]; SGroup 10605 1 [sym__subRangeUnary];
     SGroup 10614 1 [sym__subRangeBinary]; SGroup 10620 1 [sym__subRangeCall];
     SGroup 14338 1 [sym_type]; AGroup 3 2 syms_5; AGroup 14851 2 syms_6; AGroup 14855 2 syms_7;
     AGroup 14857 2 syms_8; AGroup 14861 2 syms_9; AGroup 14883 2 syms_11;
     SGroup 10647 2 syms_12; SGroup 10482 3 syms_13; SGroup 11313 3 syms_30;
     SGroup 10505 4 syms_31; SGroup 12384 10 syms_32]);
   (35629, 5, [AGroup 5 1 [sym_ppDirective]; AGroup 3 2 syms_5; AGroup 15492 4 syms_25;
     AGroup 15403 18 syms_36; AGroup 15490 31 syms_55]);
   (35696, 33, [AGroup 5 1 [sym_ppDirective]; AGroup 14849 1 [anon_sym_LPAREN];
     AGroup 14853 1 [anon_sym_POUND]; AGroup 14859 1 [aux_sym_ppUsesBlock_token1];
     AGroup 14863 1 [sym_kHat]; AGroup 14865 1 [sym_ppFragmentExpr];
     AGroup 14867 1 [sym_identifier]; AGroup 14871 1 [sym_kSpecialize];
     AGroup 14873 1 [sym_kReference]; AGroup 14875 1 [sym_kArray]; AGroup 14881 1 [sym_kFile];
     AGroup 14889 1 [sym_kSet]; AGroup 14891 1 [sym_kString]; AGroup 15387 1 [sym_kClass];
     AGroup 15391 1 [sym_kPacked]; AGroup 15393 1 [sym_kRecord]; AGroup 15645 1 [sym_kHelper];
     SGroup 3870 1 [sym__ppIf]; SGroup 10605 1 [sym__subRangeUnary];
     SGroup 10614 1 [sym__subRangeBinary]; SGroup 10620 1 [sym__subRangeCall];
     SGroup 14750 1 [sym_type]; AGroup 3 2 syms_5; AGroup 14851 2 syms_6; AGroup 14855 2 syms_7;
     AGroup 14857 2 syms_8; AGroup 14861 2 syms_9; AGroup 14883 2 syms_11;
     SGroup 10647 2 syms_12; SGroup 10482 3 syms_13; SGroup 11313 3 syms_30;
     SGroup 10505 4 syms_31; SGroup 12384 10 syms_32]);
   (35819, 24, [AGroup 5 1 [sym_ppDirective]; AGroup 15011 1 [anon_sym_LBRACK];
     AGroup 15013 1 [anon_sym_LPAREN]; AGroup 15017 1 [anon_sym_POUND];
     AGroup 15029 1 [sym_kSpecialize]; AGroup 15035 1 [sym_kIf]; AGroup 15037 1 [sym_kInherited];
     AGroup 15605 1 [sym_kHat]; AGroup 16369 1 [sym_kString];
     SGroup 11187 1 [aux_sym_exprTpl_repeat1]; AGroup 3 2 syms_5; AGroup 15015 2 syms_6;
     AGroup 15019 2 syms_7; AGroup 15021 2 syms_8; AGroup 15023 2 syms_9; AGroup 15025 2 syms_10;
     AGroup 15033 2 syms_11; AGroup 16367 2 syms_52; SGroup 8466 2 syms_12;
     AGroup 15027 3 syms_53; SGroup 7201 3 syms_13; SGroup 8013 4 syms_14;
     SGroup 11902 4 syms_31; SGroup 7990 14 syms_17]);
   (35924, 25, [AGroup 5 1 [sym_ppDirective]; AGroup 15647 1 [anon_sym_LBRACK];
     AGroup 15649 1 [anon_sym_LPAREN]; AGroup 15653 1 [anon_sym_POUND];
     AGroup 15665 1 [sym_identifier]; AGroup 15667 1 [sym_kSpecialize]; AGroup 15671 1 [sym_kIf];
     AGroup 15673 1 [sym_kInherited]; AGroup 15675 1 [sym_kString];
     SGroup 3281 1 [aux_sym_recInitializer_repeat1];
     SGroup 3446 1 [aux_sym_arrInitializer_repeat1]; SGroup 13122 1 [sym_recInitializerField];
     AGroup 3 2 syms_5; AGroup 15651 2 syms_6; AGroup 15655 2 syms_7; AGroup 15657 2 syms_8;
     AGroup 15659 2 syms_9; AGroup 15661 2 syms_10; AGroup 15669 2 syms_11;
     SGroup 8129 2 syms_12; SGroup 7100 3 syms_13; SGroup 12539 3 syms_56;
     AGroup 15663 4 syms_57; SGroup 9397 4 syms_14; SGroup 7786 14 syms_17]);
   (36031, 33, [AGroup 5 1 [sym_ppDirective]; AGroup 14849 1 [anon_sym_LPAREN];
     AGroup 14853 1 [anon_sym_POUND]; AGroup 14859 1 [aux_sym_ppUsesBlock_token1];
     AGroup 14863 1 [sym_kHat]; AGroup 14865 1 [sym_ppFragmentExpr];
     AGroup 14867 1 [sym_identifier]; AGroup 14871 1 [sym_kSpecialize];
     AGroup 14873 1 [sym_kReference]; AGroup 14875 1 [sym_kArray]; AGroup 14881 1 [sym_kFile];
     AGroup 14889 1 [sym_kSet]; AGroup 14891 1 [sym_kString]; AGroup 15387 1 [sym_kClass];
     AGroup 15391 1 [sym_kPacked]; AGroup 15393 1 [sym_kRecord]; AGroup 15645 1 [sym_kHelper];
     SGroup 3870 1 [sym__ppIf]; SGroup 10605 1 [sym__subRangeUnary];
     SGroup 10614 1 [sym__subRangeBinary]; SGroup 10620 1 [sym__subRangeCall];
     SGroup 15650 1 [sym_type]; AGroup 3 2 syms_5; AGroup 14851 2 syms_6; AGroup 14855 2 syms_7;
     AGroup 14857 2 syms_8; AGroup 14861 2 syms_9; AGroup 14883 2 syms_11;
     SGroup 10647 2 syms_12; SGroup 10482 3 syms_13; SGroup 11313 3 syms_30;
     SGroup 10505 4 syms_31; SGroup 12384 10 syms_32]);
   (36154, 24, [AGroup 5 1 [sym_ppDirective]; AGroup 15441 1 [anon_sym_LBRACK];
     AGroup 15443 1 [anon_sym_LPAREN]; AGroup 15447 1 [anon_sym_POUND];
     AGroup 15459 1 [sym_kSpecialize]; AGroup 15463 1 [sym_kIf]; AGroup 15465 1 [sym_kInherited];
     AGroup 15605 1 [sym_kHat]; AGroup 16373 1 [sym_kString];
     SGroup 11202 1 [aux_sym_exprTpl_repeat1]; AGroup 3 2 syms_5; AGroup 15445 2 syms_6;
     AGroup 15449 2 syms_7; AGroup 15451 2 syms_8; AGroup 15453 2 syms_9; AGroup 15455 2 syms_10;
     AGroup 15461 2 syms_11; AGroup 16371 2 syms_52; SGroup 7612 2 syms_12;
     AGroup 15457 3 syms_53; SGroup 6946 3 syms_13; SGroup 7444 4 syms_14;
     SGroup 11764 4 syms_31; SGroup 7425 14 syms_17]);
   (36259, 33, [AGroup 5 1 [sym_ppDirective]; AGroup 14849 1 [anon_sym_LPAREN];
     AGroup 14853 1 [anon_sym_POUND]; AGroup 14859 1 [aux_sym_ppUsesBlock_token1];
     AGroup 14863 1 [sym_kHat]; AGroup 14865 1 [sym_ppFragmentExpr];
     AGroup 14867 1 [sym_identifier]; AGroup 14871 1 [sym_kSpecialize];
     AGroup 14873 1 [sym_kReference]; AGroup 14875 1 [sym_kArray]; AGroup 14881 1 [sym_kFile];
     AGroup 14889 1 [sym_kSet]; AGroup 14891 1 [sym_kString]; AGroup 15387 1 [sym_kClass];
     AGroup 15391 1 [sym_kPacked]; AGroup 15393 1 [sym_kRecord]; AGroup 15645 1 [sym_kHelper];
     SGroup 3870 1 [sym__ppIf]; SGroup 10605 1 [sym__subRangeUnary];
     SGroup 10614 1 [sym__subRangeBinary]; SGroup 10620 1 [sym__subRangeCall];
     SGroup 15804 1 [sym_type]; AGroup 3 2 syms_5; AGroup 14851 2 syms_6; AGroup 14855 2 syms_7;
     AGroup 14857 2 syms_8; AGroup 14861 2 syms_9; AGroup 14883 2 syms_11;
     SGroup 10647 2 syms_12; SGroup 10482 3 syms_13; SGroup 11313 3 syms_30;
     SGroup 10505 4 syms_31; SGroup 12384 10 syms_32]);
   (36382, 33, [AGroup 5 1 [sym_ppDirective]; AGroup 14849 1 [anon_sym_LPAREN];
     AGroup 14853 1 [anon_sym_POUND]; AGroup 14859 1 [aux_sym_ppUsesBlock_token1];
     AGroup 14863 1 [sym_kHat]; AGroup 14865 1 [sym_ppFragmentExpr];
     AGroup 14867 1 [sym_identifier]; AGroup 14871 1 [sym_kSpecialize];
     AGroup 14873 1 [sym_kReference]; AGroup 14875 1 [sym_kArray]; AGroup 14881 1 [sym_kFile];
     AGroup 14889 1 [sym_kSet]; AGroup 14891 1 [sym_kString]; AGroup 15387 1 [sym_kClass];
     AGroup 15391 1 [sym_kPacked]; AGroup 15393 1 [sym_kRecord]; AGroup 15645 1 [sym_kHelper];
     SGroup 3870 1 [sym__ppIf]; SGroup 10605 1 [sym__subRangeUnary];
     SGroup 10614 1 [sym__subRangeBinary]; SGroup 10620 1 [sym__subRangeCall];
     SGroup 15905 1 [sym_type]; AGroup 3 2 syms_5; AGroup 14851 2 syms_6; AGroup 14855 2 syms_7;
     AGroup 14857 2 syms_8; AGroup 14861 2 syms_9; AGroup 14883 2 syms_11;
     SGroup 10647 2 syms_12; SGroup 10482 3 syms_13; SGroup 11313 3 syms_30;
     SGroup 10505 4 syms_31; SGroup 12384 10 syms_32]);
   (36505, 21, [AGroup 5 1 [sym_ppDirective]; AGroup 47 1 [anon_sym_LPAREN]; AGroup 51 1 [anon_sym_POUND];
     AGroup 73 1 [sym_kSpecialize]; AGroup 105 1 [sym_kInherited]; AGroup 117 1 [sym_kString];
     AGroup 11060 1 [anon_sym_LBRACK]; AGroup 15829 1 [sym_kIf]; AGroup 3 2 syms_5;
     AGroup 49 2 syms_6; AGroup 53 2 syms_7; AGroup 55 2 syms_8; AGroup 61 2 syms_9;
     AGroup 63 2 syms_10; AGroup 11080 2 syms_11; SGroup 7888 2 syms_12; SGroup 6994 3 syms_13;
     SGroup 8544 4 syms_14; AGroup 65 5 syms_15; AGroup 14747 6 syms_61; SGroup 7765 14 syms_17]);
   (36604, 25, [AGroup 5 1 [sym_ppDirective]; AGroup 15647 1 [anon_sym_LBRACK];
     AGroup 15649 1 [anon_sym_LPAREN]; AGroup 15653 1 [anon_sym_POUND];
     AGroup 15665 1 [sym_identifier]; AGroup 15667 1 [sym_kSpecialize]; AGroup 15671 1 [sym_kIf];
     AGroup 15673 1 [sym_kInherited]; AGroup 15675 1 [sym_kString];
     SGroup 3301 1 [aux_sym_recInitializer_repeat1];
     SGroup 3405 1 [aux_sym_arrInitializer_repeat1]; SGroup 13091 1 [sym_recInitializerField];
     AGroup 3 2 syms_5; AGroup 15651 2 syms_6; AGroup 15655 2 syms_7; AGroup 15657 2 syms_8;
     AGroup 15659 2 syms_9; AGroup 15661 2 syms_10; AGroup 15669 2 syms_11;
     SGroup 8129 2 syms_12; SGroup 7100 3 syms_13; SGroup 12683 3 syms_56;
     AGroup 15663 4 syms_57; SGroup 9572 4 syms_14; SGroup 7786 14 syms_17]);
   (36711, 33, [AGroup 5 1 [sym_ppDirective]; AGroup 14849 1 [anon_sym_LPAREN];
     AGroup 14853 1 [anon_sym_POUND]; AGroup 14859 1 [aux_sym_ppUsesBlock_token1];
     AGroup 14863 1 [sym_kHat]; AGroup 14865 1 [sym_ppFragmentExpr];
     AGroup 14867 1 [sym_identifier]; AGroup 14871 1 [sym_kSpecialize];
     AGroup 14873 1 [sym_kReference]; AGroup 14875 1 [sym_kArray]; AGroup 14881 1 [sym_kFile];
     AGroup 14889 1 [sym_kSet]; AGroup 14891 1 [sym_kString]; AGroup 15387 1 [sym_kClass];
     AGroup 15391 1 [sym_kPacked]; AGroup 15393 1 [sym_kRecord]; AGroup 15645 1 [sym_kHelper];
     SGroup 3870 1 [sym__ppIf]; SGroup 10605 1 [sym__subRangeUnary];
     SGroup 10614 1 [sym__subRangeBinary]; SGroup 10620 1 [sym__subRangeCall];
     SGroup 14518 1 [sym_type]; AGroup 3 2 syms_5; AGroup 14851 2 syms_6; AGroup 14855 2 syms_7;
     AGroup 14857 2 syms_8; AGroup 14861 2 syms_9; AGroup 14883 2 syms_11;
     SGroup 10647 2 syms_12; SGroup 10482 3 syms_13; SGroup 11313 3 syms_30;
     SGroup 10505 4 syms_31; SGroup 12384 10 syms_32]);
   (36834, 33, [AGroup 5 1 [sym_ppDirective]; AGroup 14849 1 [anon_sym_LPAREN];
     AGroup 14853 1 [anon_sym_POUND]; AGroup 14859 1 [aux_sym_ppUsesBlock_token1];
     AGroup 14863 1 [sym_kHat]; AGroup 14865 1 [sym_ppFragmentExpr];
     AGroup 14867 1 [sym_identifier]; AGroup 14871 1 [sym_kSpecialize];
     AGroup 14873 1 [sym_kReference]; AGroup 14875 1 [sym_kArray]; AGroup 14881 1 [sym_kFile];
     AGroup 14889 1 [sym_kSet]; AGroup 14891 1 [sym_kString]; AGroup 15387 1 [sym_kClass];
     AGroup 15391 1 [sym_kPacked]; AGroup 15393 1 [sym_kRecord]; AGroup 15645 1 [sym_kHelper];
     SGroup 3870 1 [sym__ppIf]; SGroup 10605 1 [sym__subRangeUnary];
     SGroup 10614 1 [sym__subRangeBinary]; SGroup 10620 1 [sym__subRangeCall];
     SGroup 14617 1 [sym_type]; AGroup 3 2 syms_5; AGroup 14851 2 syms_6; AGroup 14855 2 syms_7;
     AGroup 14857 2 syms_8; AGroup 14861 2 syms_9; AGroup 14883 2 syms_11;
     SGroup 10647 2 syms_12; SGroup 10482 3 syms_13; SGroup 11313 3 syms_30;
     SGroup 10505 4 syms_31; SGroup 12384 10 syms_32]);
   (36957, 33, [AGroup 5 1 [sym_ppDirective]; AGroup 14849 1 [anon_sym_LPAREN];
     AGroup 14853 1 [anon_sym_POUND]; AGroup 14859 1 [aux_sym_ppUsesBlock_token1];
     AGroup 14863 1 [sym_kHat]; AGroup 14865 1 [sym_ppFragmentExpr];
     AGroup 14867 1 [sym_identifier]; AGroup 14871 1 [sym_kSpecialize];
     AGroup 14873 1 [sym_kReference]; AGroup 14875 1 [sym_kArray]; AGroup 14881 1 [sym_kFile];
     AGroup 14889 1 [sym_kSet]; AGroup 14891 1 [sym_kString]; AGroup 15387 1 [sym_kClass];
     AGroup 15391 1 [sym_kPacked]; AGroup 15393 1 [sym_kRecord]; AGroup 15645 1 [sym_kHelper];
     SGroup 3870 1 [sym__ppIf]; SGroup 10605 1 [sym__subRangeUnary];
     SGroup 10614 1 [sym__subRangeBinary]; SGroup 10620 1 [sym__subRangeCall];
     SGroup 14670 1 [sym_type]; AGroup 3 2 syms_5; AGroup 14851 2 syms_6; AGroup 14855 2 syms_7;
     AGroup 14857 2 syms_8; AGroup 14861 2 syms_9; AGroup 14883 2 syms_11;
     SGroup 10647 2 syms_12; SGroup 10482 3 syms_13; SGroup 11313 3 syms_30;
     SGroup 10505 4 syms_31; SGroup 12384 10 syms_32]);
   (37080, 24, [AGroup 5 1 [sym_ppDirective]; AGroup 15605 1 [sym_kHat]; AGroup 16375 1 [anon_sym_LBRACK];
     AGroup 16377 1 [anon_sym_LPAREN]; AGroup 16381 1 [anon_sym_POUND];
     AGroup 16395 1 [sym_kSpecialize]; AGroup 16399 1 [sym_kIf]; AGroup 16401 1 [sym_kInherited];
     AGroup 16403 1 [sym_kString]; SGroup 11209 1 [aux_sym_exprTpl_repeat1]; AGroup 3 2 syms_5;
     AGroup 16379 2 syms_6; AGroup 16383 2 syms_7; AGroup 16385 2 syms_8; AGroup 16387 2 syms_9;
     AGroup 16389 2 syms_10; AGroup 16393 2 syms_52; AGroup 16397 2 syms_11;
     SGroup 8530 2 syms_12; AGroup 16391 3 syms_53; SGroup 7169 3 syms_13; SGroup 7936 4 syms_14;
     SGroup 11770 4 syms_31; SGroup 8170 14 syms_17]);
   (37185, 24, [AGroup 5 1 [sym_ppDirective]; AGroup 15605 1 [sym_kHat]; AGroup 16405 1 [anon_sym_LBRACK];
     AGroup 16407 1 [anon_sym_LPAREN]; AGroup 16411 1 [anon_sym_POUND];
     AGroup 16425 1 [sym_kSpecialize]; AGroup 16429 1 [sym_kIf]; AGroup 16431 1 [sym_kInherited];
     AGroup 16433 1 [sym_kString]; SGroup 11083 1 [aux_sym_exprTpl_repeat1]; AGroup 3 2 syms_5;
     AGroup 16409 2 syms_6; AGroup 16413 2 syms_7; AGroup 16415 2 syms_8; AGroup 16417 2 syms_9;
     AGroup 16419 2 syms_10; AGroup 16423 2 syms_52; AGroup 16427 2 syms_11;
     SGroup 9247 2 syms_12; AGroup 16421 3 syms_53; SGroup 7508 3 syms_13; SGroup 8853 4 syms_14;
     SGroup 11815 4 syms_31; SGroup 8844 14 syms_17]);
   (37290, 24, [AGroup 5 1 [sym_ppDirective]; AGroup 15605 1 [sym_kHat]; AGroup 16435 1 [anon_sym_LBRACK];
     AGroup 16437 1 [anon_sym_LPAREN]; AGroup 16441 1 [anon_sym_POUND];
     AGroup 16455 1 [sym_kSpecialize]; AGroup 16459 1 [sym_kIf]; AGroup 16461 1 [sym_kInherited];
     AGroup 16463 1 [sym_kString]; SGroup 11217 1 [aux_sym_exprTpl_repeat1]; AGroup 3 2 syms_5;
     AGroup 16439 2 syms_6; AGroup 16443 2 syms_7; AGroup 16445 2 syms_8; AGroup 16447 2 syms_9;
     AGroup 16449 2 syms_10; AGroup 16453 2 syms_52; AGroup 16457 2 syms_11;
     SGroup 8859 2 syms_12; AGroup 16451 3 syms_53; SGroup 7280 3 syms_13; SGroup 8318 4 syms_14;
     SGroup 11776 4 syms_31; SGroup 8207 14 syms_17]);
   (37395, 25, [AGroup 5 1 [sym_ppDirective]; AGroup 15647 1 [anon_sym_LBRACK];
     AGroup 15649 1 [anon_sym_LPAREN]; AGroup 15653 1 [anon_sym_POUND];
     AGroup 15665 1 [sym_identifier]; AGroup 15667 1 [sym_kSpecialize]; AGroup 15671 1 [sym_kIf];
     AGroup 15673 1 [sym_kInherited]; AGroup 15675 1 [sym_kString];
     SGroup 3322 1 [aux_sym_recInitializer_repeat1];
     SGroup 3454 1 [aux_sym_arrInitializer_repeat1]; SGroup 13431 1 [sym_recInitializerField];
     AGroup 3 2 syms_5; AGroup 15651 2 syms_6; AGroup 15655 2 syms_7; AGroup 15657 2 syms_8;
     AGroup 15659 2 syms_9; AGroup 15661 2 syms_10; AGroup 15669 2 syms_11;
     SGroup 8129 2 syms_12; SGroup 7100 3 syms_13; SGroup 12787 3 syms_56;
     AGroup 15663 4 syms_57; SGroup 9404 4 syms_14; SGroup 7786 14 syms_17]);
   (37502, 33, [AGroup 5 1 [sym_ppDirective]; AGroup 14849 1 [anon_sym_LPAREN];
     AGroup 14853 1 [anon_sym_POUND]; AGroup 14859 1 [aux_sym_ppUsesBlock_token1];
     AGroup 14863 1 [sym_kHat]; AGroup 14865 1 [sym_ppFragmentExpr];
     AGroup 14867 1 [sym_identifier]; AGroup 14871 1 [sym_kSpecialize];
     AGroup 14873 1 [sym_kReference]; AGroup 14875 1 [sym_kArray]; AGroup 14881 1 [sym_kFile];
     AGroup 14889 1 [sym_kSet]; AGroup 14891 1 [sym_kString]; AGroup 15387 1 [sym_kClass];
     AGroup 15391 1 [sym_kPacked]; AGroup 15393 1 [sym_kRecord]; AGroup 15645 1 [sym_kHelper];
     SGroup 3870 1 [sym__ppIf]; SGroup 10605 1 [sym__subRangeUnary];
     SGroup 10614 1 [sym__subRangeBinary]; SGroup 10620 1 [sym__subRangeCall];
     SGroup 15024 1 [sym_type]; AGroup 3 2 syms_5; AGroup 14851 2 syms_6; AGroup 14855 2 syms_7;
     AGroup 14857 2 syms_8; AGroup 14861 2 syms_9; AGroup 14883 2 syms_11;
     SGroup 10647 2 syms_12; SGroup 10482 3 syms_13; SGroup 11313 3 syms_30;
     SGroup 10505 4 syms_31; SGroup 12384 10 syms_32]);
   (37625, 4, [AGroup 5 1 [sym_ppDirective]; AGroup 3 2 syms_5; AGroup 16467 4 syms_25;
     AGroup 16465 49 syms_62]);
   (37690, 33, [AGroup 5 1 [sym_ppDirective]; AGroup 14849 1 [anon_sym_LPAREN];
     AGroup 14853 1 [anon_sym_POUND]; AGroup 14859 1 [aux_sym_ppUsesBlock_token1];
     AGroup 14863 1 [sym_kHat]; AGroup 14865 1 [sym_ppFragmentExpr];
     AGroup 14867 1 [sym_identifier]; AGroup 14871 1 [sym_kSpecialize];
     AGroup 14873 1 [sym_kReference]; AGroup 14875 1 [sym_kArray]; AGroup 14881 1 [sym_kFile];
     AGroup 14889 1 [sym_kSet]; AGroup 14891 1 [sym_kString]; AGroup 15387 1 [sym_kClass];
     AGroup 15391 1 [sym_kPacked]; AGroup 15393 1 [sym_kRecord]; AGroup 15645 1 [sym_kHelper];
     SGroup 3870 1 [sym__ppIf]; SGroup 10605 1 [sym__subRangeUnary];
     SGroup 10614 1 [sym__subRangeBinary]; SGroup 10620 1 [sym__subRangeCall];
     SGroup 15098 1 [sym_type]; AGroup 3 2 syms_5; AGroup 14851 2 syms_6; AGroup 14855 2 syms_7;
     AGroup 14857 2 syms_8; AGroup 14861 2 syms_9; AGroup 14883 2 syms_11;
     SGroup 10647 2 syms_12; SGroup 10482 3 syms_13; SGroup 11313 3 syms_30;
     SGroup 10505 4 syms_31; SGroup 12384 10 syms_32]);
   (37813, 21, [AGroup 5 1 [sym_ppDirective]; AGroup 47 1 [anon_sym_LPAREN]; AGroup 51 1 [anon_sym_POUND];
     AGroup 73 1 [sym_kSpecialize]; AGroup 105 1 [sym_kInherited]; AGroup 117 1 [sym_kString];
     AGroup 11060 1 [anon_sym_LBRACK]; AGroup 15829 1 [sym_kIf]; AGroup 3 2 syms_5;
     AGroup 49 2 syms_6; AGroup 53 2 syms_7; AGroup 55 2 syms_8; AGroup 61 2 syms_9;
     AGroup 63 2 syms_10; AGroup 11080 2 syms_11; SGroup 7888 2 syms_12; SGroup 6994 3 syms_13;
     SGroup 8556 4 syms_14; AGroup 65 5 syms_15; AGroup 14765 6 syms_61; SGroup 7765 14 syms_17]);
   (37912, 24, [AGroup 5 1 [sym_ppDirective]; AGroup 15605 1 [sym_kHat]; AGroup 16469 1 [anon_sym_LBRACK];
     AGroup 16471 1 [anon_sym_LPAREN]; AGroup 16475 1 [anon_sym_POUND];
     AGroup 16489 1 [sym_kSpecialize]; AGroup 16493 1 [sym_kIf]; AGroup 16495 1 [sym_kInherited];
     AGroup 16497 1 [sym_kString]; SGroup 11227 1 [aux_sym_exprTpl_repeat1]; AGroup 3 2 syms_5;
     AGroup 16473 2 syms_6; AGroup 16477 2 syms_7; AGroup 16479 2 syms_8; AGroup 16481 2 syms_9;
     AGroup 16483 2 syms_10; AGroup 16487 2 syms_52; AGroup 16491 2 syms_11;
     SGroup 8445 2 syms_12; AGroup 16485 3 syms_53; SGroup 7193 3 syms_13; SGroup 7966 4 syms_14;
     SGroup 11783 4 syms_31; SGroup 7957 14 syms_17]);
   (38017, 33, [AGroup 5 1 [sym_ppDirective]; AGroup 14849 1 [anon_sym_LPAREN];
     AGroup 14853 1 [anon_sym_POUND]; AGroup 14859 1 [aux_sym_ppUsesBlock_token1];
     AGroup 14863 1 [sym_kHat]; AGroup 14865 1 [sym_ppFragmentExpr];
     AGroup 14867 1 [sym_identifier]; AGroup 14871 1 [sym_kSpecialize];
     AGroup 14873 1 [sym_kReference]; AGroup 14875 1 [sym_kArray]; AGroup 14881 1 [sym_kFile];
     AGroup 14889 1 [sym_kSet]; AGroup 14891 1 [sym_kString]; AGroup 15387 1 [sym_kClass];
     AGroup 15391 1 [sym_kPacked]; AGroup 15393 1 [sym_kRecord]; AGroup 15645 1 [sym_kHelper];
     SGroup 3870 1 [sym__ppIf]; SGroup 10605 1 [sym__subRangeUnary];
     SGroup 10614 1 [sym__subRangeBinary]; SGroup 10620 1 [sym__subRangeCall];
     SGroup 15135 1 [sym_type]; AGroup 3 2 syms_5; AGroup 14851 2 syms_6; AGroup 14855 2 syms_7;
     AGroup 14857 2 syms_8; AGroup 14861 2 syms_9; AGroup 14883 2 syms_11;
     SGroup 10647 2 syms_12; SGroup 10482 3 syms_13; SGroup 11313 3 syms_30;
     SGroup 10505 4 syms_31; SGroup 12384 10 syms_32]);
   (38140, 24, [AGroup 5 1 [sym_ppDirective]; AGroup 15605 1 [sym_kHat]; AGroup 16499 1 [anon_sym_LBRACK];
     AGroup 16501 1 [anon_sym_LPAREN]; AGroup 16505 1 [anon_sym_POUND];
     AGroup 16519 1 [sym_kSpecialize]; AGroup 16523 1 [sym_kIf]; AGroup 16525 1 [sym_kInherited];
     AGroup 16527 1 [sym_kString]; SGroup 11080 1 [aux_sym_exprTpl_repeat1]; AGroup 3 2 syms_5;
     AGroup 16503 2 syms_6; AGroup 16507 2 syms_7; AGroup 16509 2 syms_8; AGroup 16511 2 syms_9;
     AGroup 16513 2 syms_10; AGroup 16517 2 syms_52; AGroup 16521 2 syms_11;
     SGroup 8924 2 syms_12; AGroup 16515 3 syms_53; SGroup 7300 3 syms_13; SGroup 8382 4 syms_14;
     SGroup 11788 4 syms_31; SGroup 8299 14 syms_17]);
   (38245, 24, [AGroup 5 1 [sym_ppDirective]; AGroup 3196 1 [anon_sym_LBRACK];
     AGroup 3198 1 [anon_sym_LPAREN]; AGroup 3202 1 [anon_sym_POUND];
     AGroup 3218 1 [sym_kSpecialize]; AGroup 3240 1 [sym_kInherited]; AGroup 14949 1 [sym_kIf];
     AGroup 15605 1 [sym_kHat]; AGroup 16531 1 [sym_kString];
     SGroup 11073 1 [aux_sym_exprTpl_repeat1]; AGroup 3 2 syms_5; AGroup 3200 2 syms_6;
     AGroup 3204 2 syms_7; AGroup 3206 2 syms_8; AGroup 3208 2 syms_9; AGroup 3210 2 syms_10;
     AGroup 3234 2 syms_11; AGroup 16529 2 syms_52; SGroup 6992 2 syms_12; AGroup 3212 3 syms_53;
     SGroup 5959 3 syms_13; SGroup 6677 4 syms_14; SGroup 11795 4 syms_31; SGroup 6884 14 syms_17]);
   (38350, 25, [AGroup 5 1 [sym_ppDirective]; AGroup 15647 1 [anon_sym_LBRACK];
     AGroup 15649 1 [anon_sym_LPAREN]; AGroup 15653 1 [anon_sym_POUND];
     AGroup 15665 1 [sym_identifier]; AGroup 15667 1 [sym_kSpecialize]; AGroup 15671 1 [sym_kIf];
     AGroup 15673 1 [sym_kInherited]; AGroup 15675 1 [sym_kString];
     SGroup 3338 1 [aux_sym_recInitializer_repeat1];
     SGroup 3396 1 [aux_sym_arrInitializer_repeat1]; SGroup 13620 1 [sym_recInitializerField];
     AGroup 3 2 syms_5; AGroup 15651 2 syms_6; AGroup 15655 2 syms_7; AGroup 15657 2 syms_8;
     AGroup 15659 2 syms_9; AGroup 15661 2 syms_10; AGroup 15669 2 syms_11;
     SGroup 8129 2 syms_12; SGroup 7100 3 syms_13; SGroup 12850 3 syms_56;
     AGroup 15663 4 syms_57; SGroup 9468 4 syms_14; SGroup 7786 14 syms_17]);
   (38457, 33, [AGroup 5 1 [sym_ppDirective]; AGroup 14849 1 [anon_sym_LPAREN];
     AGroup 14853 1 [anon_sym_POUND]; AGroup 14859 1 [aux_sym_ppUsesBlock_token1];
     AGroup 14863 1 [sym_kHat]; AGroup 14865 1 [sym_ppFragmentExpr];
     AGroup 14867 1 [sym_identifier]; AGroup 14871 1 [sym_kSpecialize];
     AGroup 14873 1 [sym_kReference]; AGroup 14875 1 [sym_kArray]; AGroup 14881 1 [sym_kFile];
     AGroup 14889 1 [sym_kSet]; AGroup 14891 1 [sym_kString]; AGroup 15387 1 [sym_kClass];
     AGroup 15391 1 [sym_kPacked]; AGroup 15393 1 [sym_kRecord]; AGroup 15645 1 [sym_kHelper];
     SGroup 3870 1 [sym__ppIf]; SGroup 10605 1 [sym__subRangeUnary];
     SGroup 10614 1 [sym__subRangeBinary]; SGroup 10620 1 [sym__subRangeCall];
     SGroup 15339 1 [sym_type]; AGroup 3 2 syms_5; AGroup 14851 2 syms_6; AGroup 14855 2 syms_7;
     AGroup 14857 2 syms_8; AGroup 14861 2 syms_9; AGroup 14883 2 syms_11;
     SGroup 10647 2 syms_12; SGroup 10482 3 syms_13; SGroup 11313 3 syms_30;
     SGroup 10505 4 syms_31; SGroup 12384 10 syms_32]);
   (38580, 5, [AGroup 5 1 [sym_ppDirective]; AGroup 3 2 syms_5; AGroup 15473 4 syms_25;
     AGroup 15403 18 syms_36; AGroup 15471 31 syms_55]);
   (38647, 24, [AGroup 5 1 [sym_ppDirective]; AGroup 14983 1 [anon_sym_LBRACK];
     AGroup 14985 1 [anon_sym_LPAREN]; AGroup 14989 1 [anon_sym_POUND];
     AGroup 15001 1 [sym_kSpecialize]; AGroup 15005 1 [sym_kIf]; AGroup 15007 1 [sym_kInherited];
     AGroup 15605 1 [sym_kHat]; AGroup 15823 1 [sym_kString];
     SGroup 11221 1 [aux_sym_exprTpl_repeat1]; AGroup 3 2 syms_5; AGroup 14987 2 syms_6;
     AGroup 14991 2 syms_7; AGroup 14993 2 syms_8; AGroup 14995 2 syms_9; AGroup 14997 2 syms_10;
     AGroup 15003 2 syms_11; AGroup 16533 2 syms_52; SGroup 7132 2 syms_12;
     AGroup 14999 3 syms_53; SGroup 6248 3 syms_13; SGroup 7058 4 syms_14;
     SGroup 12012 4 syms_31; SGroup 7054 14 syms_17]);
   (38752, 33, [AGroup 5 1 [sym_ppDirective]; AGroup 14849 1 [anon_sym_LPAREN];
     AGroup 14853 1 [anon_sym_POUND]; AGroup 14859 1 [aux_sym_ppUsesBlock_token1];
     AGroup 14863 1 [sym_kHat]; AGroup 14865 1 [sym_ppFragmentExpr];
     AGroup 14867 1 [sym_identifier]; AGroup 14871 1 [sym_kSpecialize];
     AGroup 14873 1 [sym_kReference]; AGroup 14875 1 [sym_kArray]; AGroup 14881 1 [sym_kFile];
     AGroup 14889 1 [sym_kSet]; AGroup 14891 1 [sym_kString]; AGroup 15387 1 [sym_kClass];
     AGroup 15391 1 [sym_kPacked]; AGroup 15393 1 [sym_kRecord]; AGroup 15645 1 [sym_kHelper];
     SGroup 3870 1 [sym__ppIf]; SGroup 10605 1 [sym__subRangeUnary];
     SGroup 10614 1 [sym__subRangeBinary]; SGroup 10620 1 [sym__subRangeCall];
     SGroup 15392 1 [sym_type]; AGroup 3 2 syms_5; AGroup 14851 2 syms_6; AGroup 14855 2 syms_7;
     AGroup 14857 2 syms_8; AGroup 14861 2 syms_9; AGroup 14883 2 syms_11;
     SGroup 10647 2 syms_12; SGroup 10482 3 syms_13; SGroup 11313 3 syms_30;
     SGroup 10505 4 syms_31; SGroup 12384 10 syms_32]);
   (38875, 5, [AGroup 5 1 [sym_ppDirective]; AGroup 3 2 syms_5; AGroup 15504 4 syms_25;
     AGroup 15403 18 syms_36; AGroup 15502 31 syms_55]);
   (38942, 33, [AGroup 5 1 [sym_ppDirective]; AGroup 14849 1 [anon_sym_LPAREN];
     AGroup 14853 1 [anon_sym_POUND]; AGroup 14859 1 [aux_sym_ppUsesBlock_token1];
     AGroup 14863 1 [sym_kHat]; AGroup 14865 1 [sym_ppFragmentExpr];
     AGroup 14867 1 [sym_identifier]; AGroup 14871 1 [sym_kSpecialize];
     AGroup 14873 1 [sym_kReference]; AGroup 14875 1 [sym_kArray]; AGroup 14881 1 [sym_kFile];
     AGroup 14889 1 [sym_kSet]; AGroup 14891 1 [sym_kString]; AGroup 15387 1 [sym_kClass];
     AGroup 15391 1 [sym_kPacked]; AGroup 15393 1 [sym_kRecord]; AGroup 15645 1 [sym_kHelper];
     SGroup 3870 1 [sym__ppIf]; SGroup 10605 1 [sym__subRangeUnary];
     SGroup 10614 1 [sym__subRangeBinary]; SGroup 10620 1 [sym__subRangeCall];
     SGroup 15458 1 [sym_type]; AGroup 3 2 syms_5; AGroup 14851 2 syms_6; AGroup 14855 2 syms_7;
     AGroup 14857 2 syms_8; AGroup 14861 2 syms_9; AGroup 14883 2 syms_11;
     SGroup 10647 2 syms_12; SGroup 10482 3 syms_13; SGroup 11313 3 syms_30;
     SGroup 10505 4 syms_31; SGroup 12384 10 syms_32]);
   (39065, 5, [AGroup 5 1 [sym_ppDirective]; AGroup 3 2 syms_5; AGroup 15484 4 syms_25;
     AGroup 15403 18 syms_36; AGroup 15482 31 syms_55]);
   (39132, 24, [AGroup 5 1 [sym_ppDirective]; AGroup 15605 1 [sym_kHat]; AGroup 16535 1 [anon_sym_LBRACK];
     AGroup 16537 1 [anon_sym_LPAREN]; AGroup 16541 1 [anon_sym_POUND];
     AGroup 16555 1 [sym_kSpecialize]; AGroup 16559 1 [sym_kIf]; AGroup 16561 1 [sym_kInherited];
     AGroup 16563 1 [sym_kString]; SGroup 11078 1 [aux_sym_exprTpl_repeat1]; AGroup 3 2 syms_5;
     AGroup 16539 2 syms_6; AGroup 16543 2 syms_7; AGroup 16545 2 syms_8; AGroup 16547 2 syms_9;
     AGroup 16549 2 syms_10; AGroup 16553 2 syms_52; AGroup 16557 2 syms_11;
     SGroup 8601 2 syms_12; AGroup 16551 3 syms_53; SGroup 7304 3 syms_13; SGroup 8380 4 syms_14;
     SGroup 11802 4 syms_31; SGroup 8287 14 syms_17]);
   (39237, 25, [AGroup 5 1 [sym_ppDirective]; AGroup 15647 1 [anon_sym_LBRACK];
     AGroup 15649 1 [anon_sym_LPAREN]; AGroup 15653 1 [anon_sym_POUND];
     AGroup 15665 1 [sym_identifier]; AGroup 15667 1 [sym_kSpecialize]; AGroup 15671 1 [sym_kIf];
     AGroup 15673 1 [sym_kInherited]; AGroup 15675 1 [sym_kString];
     SGroup 3346 1 [aux_sym_recInitializer_repeat1];
     SGroup 3413 1 [aux_sym_arrInitializer_repeat1]; SGroup 13904 1 [sym_recInitializerField];
     AGroup 3 2 syms_5; AGroup 15651 2 syms_6; AGroup 15655 2 syms_7; AGroup 15657 2 syms_8;
     AGroup 15659 2 syms_9; AGroup 15661 2 syms_10; AGroup 15669 2 syms_11;
     SGroup 8129 2 syms_12; SGroup 7100 3 syms_13; SGroup 12927 3 syms_56;
     AGroup 15663 4 syms_57; SGroup 9503 4 syms_14; SGroup 7786 14 syms_17]);
   (39344, 24, [AGroup 5 1 [sym_ppDirective]; AGroup 15556 1 [anon_sym_LBRACK];
     AGroup 15558 1 [anon_sym_LPAREN]; AGroup 15562 1 [anon_sym_POUND];
     AGroup 15574 1 [sym_kSpecialize]; AGroup 15580 1 [sym_kIf]; AGroup 15582 1 [sym_kInherited];
     AGroup 15605 1 [sym_kHat]; AGroup 16567 1 [sym_kString];
     SGroup 11082 1 [aux_sym_exprTpl_repeat1]; AGroup 3 2 syms_5; AGroup 15560 2 syms_6;
     AGroup 15564 2 syms_7; AGroup 15566 2 syms_8; AGroup 15568 2 syms_9; AGroup 15570 2 syms_10;
     AGroup 15578 2 syms_11; AGroup 16565 2 syms_52; SGroup 7416 2 syms_12;
     AGroup 15572 3 syms_53; SGroup 6479 3 syms_13; SGroup 7275 4 syms_14;
     SGroup 11808 4 syms_31; SGroup 7271 14 syms_17]);
   (39449, 24, [AGroup 5 1 [sym_ppDirective]; AGroup 15605 1 [sym_kHat]; AGroup 16569 1 [anon_sym_LBRACK];
     AGroup 16571 1 [anon_sym_LPAREN]; AGroup 16575 1 [anon_sym_POUND];
     AGroup 16589 1 [sym_kSpecialize]; AGroup 16593 1 [sym_kIf]; AGroup 16595 1 [sym_kInherited];
     AGroup 16597 1 [sym_kString]; SGroup 11159 1 [aux_sym_exprTpl_repeat1]; AGroup 3 2 syms_5;
     AGroup 16573 2 syms_6; AGroup 16577 2 syms_7; AGroup 16579 2 syms_8; AGroup 16581 2 syms_9;
     AGroup 16583 2 syms_10; AGroup 16587 2 syms_52; AGroup 16591 2 syms_11;
     SGroup 8889 2 syms_12; AGroup 16585 3 syms_53; SGroup 7286 3 syms_13; SGroup 8476 4 syms_14;
     SGroup 11946 4 syms_31; SGroup 8506 14 syms_17]);
   (39554, 25, [AGroup 5 1 [sym_ppDirective]; AGroup 15647 1 [anon_sym_LBRACK];
     AGroup 15649 1 [anon_sym_LPAREN]; AGroup 15653 1 [anon_sym_POUND];
     AGroup 15665 1 [sym_identifier]; AGroup 15667 1 [sym_kSpecialize]; AGroup 15671 1 [sym_kIf];
     AGroup 15673 1 [sym_kInherited]; AGroup 15675 1 [sym_kString];
     SGroup 3352 1 [aux_sym_recInitializer_repeat1];
     SGroup 3423 1 [aux_sym_arrInitializer_repeat1]; SGroup 13340 1 [sym_recInitializerField];
     AGroup 3 2 syms_5; AGroup 15651 2 syms_6; AGroup 15655 2 syms_7; AGroup 15657 2 syms_8;
     AGroup 15659 2 syms_9; AGroup 15661 2 syms_10; AGroup 15669 2 syms_11;
     SGroup 8129 2 syms_12; SGroup 7100 3 syms_13; SGroup 12778 3 syms_56;
     AGroup 15663 4 syms_57; SGroup 9620 4 syms_14; SGroup 7786 14 syms_17]);
   (39661, 25, [AGroup 5 1 [sym_ppDirective]; AGroup 15647 1 [anon_sym_LBRACK];
     AGroup 15649 1 [anon_sym_LPAREN]; AGroup 15653 1 [anon_sym_POUND];
     AGroup 15665 1 [sym_identifier]; AGroup 15667 1 [sym_kSpecialize]; AGroup 15671 1 [sym_kIf];
     AGroup 15673 1 [sym_kInherited]; AGroup 15675 1 [sym_kString];
     SGroup 3355 1 [aux_sym_recInitializer_repeat1];
     SGroup 3429 1 [aux_sym_arrInitializer_repeat1]; SGroup 13637 1 [sym_recInitializerField];
     AGroup 3 2 syms_5; AGroup 15651 2 syms_6; AGroup 15655 2 syms_7; AGroup 15657 2 syms_8;
     AGroup 15659 2 syms_9; AGroup 15661 2 syms_10; AGroup 15669 2 syms_11;
     SGroup 8129 2 syms_12; SGroup 7100 3 syms_13; SGroup 12838 3 syms_56;
     AGroup 15663 4 syms_57; SGroup 9535 4 syms_14; SGroup 7786 14 syms_17]);
   (39768, 25, [AGroup 5 1 [sym_ppDirective]; AGroup 15647 1 [anon_sym_LBRACK];
     AGroup 15649 1 [anon_sym_LPAREN]; AGroup 15653 1 [anon_sym_POUND];
     AGroup 15665 1 [sym_identifier]; AGroup 15667 1 [sym_kSpecialize]; AGroup 15671 1 [sym_kIf];
     AGroup 15673 1 [sym_kInherited]; AGroup 15675 1 [sym_kString];
     SGroup 3358 1 [aux_sym_recInitializer_repeat1];
     SGroup 3434 1 [aux_sym_arrInitializer_repeat1]; SGroup 13062 1 [sym_recInitializerField];
     AGroup 3 2 syms_5; AGroup 15651 2 syms_6; AGroup 15655 2 syms_7; AGroup 15657 2 syms_8;
     AGroup 15659 2 syms_9; AGroup 15661 2 syms_10; AGroup 15669 2 syms_11;
     SGroup 8129 2 syms_12; SGroup 7100 3 syms_13; SGroup 12676 3 syms_56;
     AGroup 15663 4 syms_57; SGroup 9555 4 syms_14; SGroup 7786 14 syms_17])
  ].

(** States 3159 to 3258. *)
Definition small_runs_3159 : list small_run :=
  [
   (39875, 24, [AGroup 5 1 [sym_ppDirective]; AGroup 15605 1 [sym_kHat]; AGroup 16599 1 [anon_sym_LBRACK];
     AGroup 16601 1 [anon_sym_LPAREN]; AGroup 16605 1 [anon_sym_POUND];
     AGroup 16619 1 [sym_kSpecialize]; AGroup 16623 1 [sym_kIf]; AGroup 16625 1 [sym_kInherited];
     AGroup 16627 1 [sym_kString]; SGroup 11198 1 [aux_sym_exprTpl_repeat1]; AGroup 3 2 syms_5;
     AGroup 16603 2 syms_6; AGroup 16607 2 syms_7; AGroup 16609 2 syms_8; AGroup 16611 2 syms_9;
     AGroup 16613 2 syms_10; AGroup 16617 2 syms_52; AGroup 16621 2 syms_11;
     SGroup 9368 2 syms_12; AGroup 16615 3 syms_53; SGroup 7477 3 syms_13; SGroup 8683 4 syms_14;
     SGroup 11834 4 syms_31; SGroup 8680 14 syms_17]);
   (39980, 24, [AGroup 5 1 [sym_ppDirective]; AGroup 15605 1 [sym_kHat]; AGroup 16629 1 [anon_sym_LBRACK];
     AGroup 16631 1 [anon_sym_LPAREN]; AGroup 16635 1 [anon_sym_POUND];
     AGroup 16649 1 [sym_kSpecialize]; AGroup 16653 1 [sym_kIf]; AGroup 16655 1 [sym_kInherited];
     AGroup 16657 1 [sym_kString]; SGroup 11149 1 [aux_sym_exprTpl_repeat1]; AGroup 3 2 syms_5;
     AGroup 16633 2 syms_6; AGroup 16637 2 syms_7; AGroup 16639 2 syms_8; AGroup 16641 2 syms_9;
     AGroup 16643 2 syms_10; AGroup 16647 2 syms_52; AGroup 16651 2 syms_11;
     SGroup 9289 2 syms_12; AGroup 16645 3 syms_53; SGroup 7517 3 syms_13; SGroup 8875 4 syms_14;
     SGroup 11845 4 syms_31; SGroup 8867 14 syms_17]);
   (40085, 34, [AGroup 5 1 [sym_ppDirective]; AGroup 14853 1 [anon_sym_POUND];
     AGroup 14859 1 [aux_sym_ppUsesBlock_token1]; AGroup 15405 1 [anon_sym_LPAREN];
     AGroup 15415 1 [sym_kReference]; AGroup 15417 1 [sym_kArray]; AGroup 15419 1 [sym_kClass];
     AGroup 15423 1 [sym_kFile]; AGroup 15427 1 [sym_kPacked]; AGroup 15429 1 [sym_kRecord];
     AGroup 15431 1 [sym_kSet]; AGroup 16659 1 [sym_kHat]; AGroup 16661 1 [sym_ppFragmentExpr];
     AGroup 16663 1 [sym_identifier]; AGroup 16665 1 [sym_kSpecialize];
     AGroup 16667 1 [sym_kString]; SGroup 3836 1 [sym__ppIf];
     SGroup 10605 1 [sym__subRangeUnary]; SGroup 10614 1 [sym__subRangeBinary];
     SGroup 10620 1 [sym__subRangeCall]; SGroup 11307 1 [sym_typeref]; SGroup 12239 1 [sym_type];
     SGroup 14832 1 [sym_inlineVarStringTyperef]; AGroup 3 2 syms_5; AGroup 14851 2 syms_6;
     AGroup 14855 2 syms_7; AGroup 14857 2 syms_8; AGroup 14861 2 syms_9; AGroup 15425 2 syms_11;
     SGroup 10647 2 syms_12; SGroup 10482 3 syms_13; SGroup 11244 3 syms_30;
     SGroup 10383 4 syms_31; SGroup 12943 9 syms_63]);
   (40210, 5, [AGroup 5 1 [sym_ppDirective]; AGroup 3 2 syms_5; AGroup 15473 4 syms_25;
     AGroup 15403 18 syms_36; AGroup 15471 31 syms_64]);
   (40277, 24, [AGroup 5 1 [sym_ppDirective]; AGroup 14953 1 [anon_sym_LBRACK];
     AGroup 14955 1 [anon_sym_LPAREN]; AGroup 14959 1 [anon_sym_POUND];
     AGroup 14971 1 [sym_kSpecialize]; AGroup 14975 1 [sym_kIf]; AGroup 14977 1 [sym_kInherited];
     AGroup 15605 1 [sym_kHat]; AGroup 16671 1 [sym_kString];
     SGroup 11085 1 [aux_sym_exprTpl_repeat1]; AGroup 3 2 syms_5; AGroup 14957 2 syms_6;
     AGroup 14961 2 syms_7; AGroup 14963 2 syms_8; AGroup 14965 2 syms_9; AGroup 14967 2 syms_10;
     AGroup 14973 2 syms_11; AGroup 16669 2 syms_52; SGroup 7196 2 syms_12;
     AGroup 14969 3 syms_53; SGroup 6178 3 syms_13; SGroup 7045 4 syms_14;
     SGroup 11814 4 syms_31; SGroup 7086 14 syms_17]);
   (40382, 5, [AGroup 5 1 [sym_ppDirective]; AGroup 3 2 syms_5; AGroup 15504 4 syms_25;
     AGroup 15403 18 syms_36; AGroup 15502 31 syms_64]);
   (40449, 5, [AGroup 5 1 [sym_ppDirective]; AGroup 3 2 syms_5; AGroup 15484 4 syms_25;
     AGroup 15403 18 syms_36; AGroup 15482 31 syms_64]);
   (40516, 5, [AGroup 5 1 [sym_ppDirective]; AGroup 3 2 syms_5; AGroup 15492 4 syms_25;
     AGroup 15403 18 syms_36; AGroup 15490 31 syms_64]);
   (40583, 5, [AGroup 5 1 [sym_ppDirective]; AGroup 3 2 syms_5; AGroup 15401 4 syms_25;
     AGroup 15403 18 syms_36; AGroup 15399 31 syms_64]);
   (40650, 5, [AGroup 5 1 [sym_ppDirective]; AGroup 3 2 syms_5; AGroup 15439 4 syms_25;
     AGroup 15403 18 syms_36; AGroup 15437 31 syms_64]);
   (40717, 5, [AGroup 5 1 [sym_ppDirective]; AGroup 3 2 syms_5; AGroup 15488 4 syms_25;
     AGroup 15403 18 syms_36; AGroup 15486 31 syms_64]);
   (40784, 5, [AGroup 5 1 [sym_ppDirective]; AGroup 3 2 syms_5; AGroup 15496 4 syms_25;
     AGroup 15403 18 syms_36; AGroup 15494 31 syms_64]);
   (40851, 24, [AGroup 5 1 [sym_ppDirective]; AGroup 15605 1 [sym_kHat]; AGroup 16673 1 [anon_sym_LBRACK];
     AGroup 16675 1 [anon_sym_LPAREN]; AGroup 16679 1 [anon_sym_POUND];
     AGroup 16693 1 [sym_kSpecialize]; AGroup 16697 1 [sym_kIf]; AGroup 16699 1 [sym_kInherited];
     AGroup 16701 1 [sym_kString]; SGroup 11087 1 [aux_sym_exprTpl_repeat1]; AGroup 3 2 syms_5;
     AGroup 16677 2 syms_6; AGroup 16681 2 syms_7; AGroup 16683 2 syms_8; AGroup 16685 2 syms_9;
     AGroup 16687 2 syms_10; AGroup 16691 2 syms_52; AGroup 16695 2 syms_11;
     SGroup 7694 2 syms_12; AGroup 16689 3 syms_53; SGroup 6650 3 syms_13; SGroup 7408 4 syms_14;
     SGroup 11825 4 syms_31; SGroup 7401 14 syms_17]);
   (40956, 36, [AGroup 5 1 [sym_ppDirective]; AGroup 13347 1 [anon_sym_LBRACK];
     AGroup 13351 1 [aux_sym_ppUsesBlock_token1]; AGroup 13365 1 [sym_identifier];
     AGroup 13367 1 [sym_kGeneric]; AGroup 13369 1 [sym_kOperator]; AGroup 13373 1 [sym_kStrict];
     AGroup 13377 1 [sym_kCase]; AGroup 13379 1 [sym_kClass]; AGroup 13391 1 [sym_kProperty];
     AGroup 13395 1 [sym_kType]; AGroup 15645 1 [sym_kHelper]; AGroup 16703 1 [anon_sym_SEMI];
     AGroup 16705 1 [anon_sym_LPAREN]; AGroup 16709 1 [sym_kExternal]; AGroup 16711 1 [sym_kEnd];
     AGroup 16713 1 [sym_kOf]; SGroup 2 1 [sym__ppIf]; SGroup 6354 1 [sym__visibility];
     SGroup 9779 1 [sym_ppBlock]; SGroup 9835 1 [sym__declOperator];
     SGroup 10247 1 [sym__declProc]; SGroup 10617 1 [sym_rttiAttributes];
     SGroup 10730 1 [aux_sym_rttiAttributes_repeat2];
     SGroup 13987 1 [aux_sym_genericArg_repeat1]; SGroup 14434 1 [sym_declVariant];
     SGroup 15808 1 [sym__declClass]; AGroup 3 2 syms_5; AGroup 13381 2 syms_65;
     AGroup 13393 2 syms_66; AGroup 16707 2 syms_67; SGroup 5685 2 syms_68;
     SGroup 10490 3 syms_69; AGroup 13383 4 syms_3; AGroup 13371 6 syms_70; SGroup 6150 6 syms_71]);
   (41085, 24, [AGroup 5 1 [sym_ppDirective]; AGroup 15605 1 [sym_kHat]; AGroup 16715 1 [anon_sym_LBRACK];
     AGroup 16717 1 [anon_sym_LPAREN]; AGroup 16721 1 [anon_sym_POUND];
     AGroup 16735 1 [sym_kSpecialize]; AGroup 16739 1 [sym_kIf]; AGroup 16741 1 [sym_kInherited];
     AGroup 16743 1 [sym_kString]; SGroup 11191 1 [aux_sym_exprTpl_repeat1]; AGroup 3 2 syms_5;
     AGroup 16719 2 syms_6; AGroup 16723 2 syms_7; AGroup 16725 2 syms_8; AGroup 16727 2 syms_9;
     AGroup 16729 2 syms_10; AGroup 16733 2 syms_52; AGroup 16737 2 syms_11;
     SGroup 7901 2 syms_12; AGroup 16731 3 syms_53; SGroup 7014 3 syms_13; SGroup 7761 4 syms_14;
     SGroup 11860 4 syms_31; SGroup 7757 14 syms_17]);
   (41190, 33, [AGroup 5 1 [sym_ppDirective]; AGroup 14849 1 [anon_sym_LPAREN];
     AGroup 14853 1 [anon_sym_POUND]; AGroup 14859 1 [aux_sym_ppUsesBlock_token1];
     AGroup 14863 1 [sym_kHat]; AGroup 14865 1 [sym_ppFragmentExpr];
     AGroup 14867 1 [sym_identifier]; AGroup 14871 1 [sym_kSpecialize];
     AGroup 14873 1 [sym_kReference]; AGroup 14875 1 [sym_kArray]; AGroup 14881 1 [sym_kFile];
     AGroup 14889 1 [sym_kSet]; AGroup 14891 1 [sym_kString]; AGroup 15387 1 [sym_kClass];
     AGroup 15391 1 [sym_kPacked]; AGroup 15393 1 [sym_kRecord]; AGroup 15645 1 [sym_kHelper];
     SGroup 3870 1 [sym__ppIf]; SGroup 10605 1 [sym__subRangeUnary];
     SGroup 10614 1 [sym__subRangeBinary]; SGroup 10620 1 [sym__subRangeCall];
     SGroup 14570 1 [sym_type]; AGroup 3 2 syms_5; AGroup 14851 2 syms_6; AGroup 14855 2 syms_7;
     AGroup 14857 2 syms_8; AGroup 14861 2 syms_9; AGroup 14883 2 syms_11;
     SGroup 10647 2 syms_12; SGroup 10482 3 syms_13; SGroup 11313 3 syms_30;
     SGroup 10505 4 syms_31; SGroup 12384 10 syms_32]);
   (41313, 32, [AGroup 5 1 [sym_ppDirective]; AGroup 14849 1 [anon_sym_LPAREN];
     AGroup 14853 1 [anon_sym_POUND]; AGroup 14859 1 [aux_sym_ppUsesBlock_token1];
     AGroup 14863 1 [sym_kHat]; AGroup 14865 1 [sym_ppFragmentExpr];
     AGroup 14867 1 [sym_identifier]; AGroup 14871 1 [sym_kSpecialize];
     AGroup 14873 1 [sym_kReference]; AGroup 14875 1 [sym_kArray]; AGroup 14881 1 [sym_kFile];
     AGroup 14889 1 [sym_kSet]; AGroup 14891 1 [sym_kString]; AGroup 15387 1 [sym_kClass];
     AGroup 15391 1 [sym_kPacked]; AGroup 15393 1 [sym_kRecord]; SGroup 3870 1 [sym__ppIf];
     SGroup 10605 1 [sym__subRangeUnary]; SGroup 10614 1 [sym__subRangeBinary];
     SGroup 10620 1 [sym__subRangeCall]; SGroup 13182 1 [sym_type]; AGroup 3 2 syms_5;
     AGroup 14851 2 syms_6; AGroup 14855 2 syms_7; AGroup 14857 2 syms_8; AGroup 14861 2 syms_9;
     AGroup 14883 2 syms_11; SGroup 10647 2 syms_12; SGroup 10482 3 syms_13;
     SGroup 11313 3 syms_30; SGroup 10505 4 syms_31; SGroup 12384 10 syms_32]);
   (41433, 32, [AGroup 5 1 [sym_ppDirective]; AGroup 14849 1 [anon_sym_LPAREN];
     AGroup 14853 1 [anon_sym_POUND]; AGroup 14859 1 [aux_sym_ppUsesBlock_token1];
     AGroup 14863 1 [sym_kHat]; AGroup 14865 1 [sym_ppFragmentExpr];
     AGroup 14867 1 [sym_identifier]; AGroup 14871 1 [sym_kSpecialize];
     AGroup 14873 1 [sym_kReference]; AGroup 14875 1 [sym_kArray]; AGroup 14881 1 [sym_kFile];
     AGroup 14889 1 [sym_kSet]; AGroup 14891 1 [sym_kString]; AGroup 15387 1 [sym_kClass];
     AGroup 15391 1 [sym_kPacked]; AGroup 15393 1 [sym_kRecord]; SGroup 3870 1 [sym__ppIf];
     SGroup 10605 1 [sym__subRangeUnary]; SGroup 10614 1 [sym__subRangeBinary];
     SGroup 10620 1 [sym__subRangeCall]; SGroup 13162 1 [sym_type]; AGroup 3 2 syms_5;
     AGroup 14851 2 syms_6; AGroup 14855 2 syms_7; AGroup 14857 2 syms_8; AGroup 14861 2 syms_9;
     AGroup 14883 2 syms_11; SGroup 10647 2 syms_12; SGroup 10482 3 syms_13;
     SGroup 11313 3 syms_30; SGroup 10505 4 syms_31; SGroup 12384 10 syms_32]);
   (41553, 32, [AGroup 5 1 [sym_ppDirective]; AGroup 14849 1 [anon_sym_LPAREN];
     AGroup 14853 1 [anon_sym_POUND]; AGroup 14859 1 [aux_sym_ppUsesBlock_token1];
     AGroup 14863 1 [sym_kHat]; AGroup 14865 1 [sym_ppFragmentExpr];
     AGroup 14867 1 [sym_identifier]; AGroup 14871 1 [sym_kSpecialize];
     AGroup 14873 1 [sym_kReference]; AGroup 14875 1 [sym_kArray]; AGroup 14881 1 [sym_kFile];
     AGroup 14889 1 [sym_kSet]; AGroup 14891 1 [sym_kString]; AGroup 15387 1 [sym_kClass];
     AGroup 15391 1 [sym_kPacked]; AGroup 15393 1 [sym_kRecord]; SGroup 3870 1 [sym__ppIf];
     SGroup 10605 1 [sym__subRangeUnary]; SGroup 10614 1 [sym__subRangeBinary];
     SGroup 10620 1 [sym__subRangeCall]; SGroup 12793 1 [sym_type]; AGroup 3 2 syms_5;
     AGroup 14851 2 syms_6; AGroup 14855 2 syms_7; AGroup 14857 2 syms_8; AGroup 14861 2 syms_9;
     AGroup 14883 2 syms_11; SGroup 10647 2 syms_12; SGroup 10482 3 syms_13;
     SGroup 11313 3 syms_30; SGroup 10505 4 syms_31; SGroup 12384 10 syms_32]);
   (41673, 32, [AGroup 5 1 [sym_ppDirective]; AGroup 14853 1 [anon_sym_POUND];
     AGroup 14859 1 [aux_sym_ppUsesBlock_token1]; AGroup 15405 1 [anon_sym_LPAREN];
     AGroup 15407 1 [sym_kHat]; AGroup 15409 1 [sym_ppFragmentExpr];
     AGroup 15411 1 [sym_identifier]; AGroup 15413 1 [sym_kSpecialize];
     AGroup 15415 1 [sym_kReference]; AGroup 15417 1 [sym_kArray]; AGroup 15419 1 [sym_kClass];
     AGroup 15423 1 [sym_kFile]; AGroup 15427 1 [sym_kPacked]; AGroup 15429 1 [sym_kRecord];
     AGroup 15431 1 [sym_kSet]; AGroup 15433 1 [sym_kString]; SGroup 3836 1 [sym__ppIf];
     SGroup 10605 1 [sym__subRangeUnary]; SGroup 10614 1 [sym__subRangeBinary];
     SGroup 10620 1 [sym__subRangeCall]; SGroup 12223 1 [sym_type]; AGroup 3 2 syms_5;
     AGroup 14851 2 syms_6; AGroup 14855 2 syms_7; AGroup 14857 2 syms_8; AGroup 14861 2 syms_9;
     AGroup 15425 2 syms_11; SGroup 10647 2 syms_12; SGroup 10482 3 syms_13;
     SGroup 11244 3 syms_30; SGroup 10538 4 syms_31; SGroup 12943 10 syms_32]);
   (41793, 32, [AGroup 5 1 [sym_ppDirective]; AGroup 14853 1 [anon_sym_POUND];
     AGroup 14859 1 [aux_sym_ppUsesBlock_token1]; AGroup 15357 1 [anon_sym_LPAREN];
     AGroup 15359 1 [sym_kHat]; AGroup 15361 1 [sym_ppFragmentExpr];
     AGroup 15363 1 [sym_identifier]; AGroup 15365 1 [sym_kSpecialize];
     AGroup 15367 1 [sym_kReference]; AGroup 15369 1 [sym_kArray]; AGroup 15371 1 [sym_kClass];
     AGroup 15375 1 [sym_kFile]; AGroup 15379 1 [sym_kPacked]; AGroup 15381 1 [sym_kRecord];
     AGroup 15383 1 [sym_kSet]; AGroup 15385 1 [sym_kString]; SGroup 3813 1 [sym__ppIf];
     SGroup 10605 1 [sym__subRangeUnary]; SGroup 10614 1 [sym__subRangeBinary];
     SGroup 10620 1 [sym__subRangeCall]; SGroup 10872 1 [sym_type]; AGroup 3 2 syms_5;
     AGroup 14851 2 syms_6; AGroup 14855 2 syms_7; AGroup 14857 2 syms_8; AGroup 14861 2 syms_9;
     AGroup 15377 2 syms_11; SGroup 10647 2 syms_12; SGroup 10482 3 syms_13;
     SGroup 11272 3 syms_30; SGroup 10358 4 syms_31; SGroup 11091 10 syms_32]);
   (41913, 5, [AGroup 5 1 [sym_ppDirective]; AGroup 3 2 syms_5; AGroup 15473 7 syms_34;
     AGroup 15403 18 syms_36; AGroup 15471 27 syms_72]);
   (41979, 32, [AGroup 5 1 [sym_ppDirective]; AGroup 14853 1 [anon_sym_POUND];
     AGroup 14859 1 [aux_sym_ppUsesBlock_token1]; AGroup 15405 1 [anon_sym_LPAREN];
     AGroup 15407 1 [sym_kHat]; AGroup 15409 1 [sym_ppFragmentExpr];
     AGroup 15411 1 [sym_identifier]; AGroup 15413 1 [sym_kSpecialize];
     AGroup 15415 1 [sym_kReference]; AGroup 15417 1 [sym_kArray]; AGroup 15419 1 [sym_kClass];
     AGroup 15423 1 [sym_kFile]; AGroup 15427 1 [sym_kPacked]; AGroup 15429 1 [sym_kRecord];
     AGroup 15431 1 [sym_kSet]; AGroup 15433 1 [sym_kString]; SGroup 3836 1 [sym__ppIf];
     SGroup 10605 1 [sym__subRangeUnary]; SGroup 10614 1 [sym__subRangeBinary];
     SGroup 10620 1 [sym__subRangeCall]; SGroup 12420 1 [sym_type]; AGroup 3 2 syms_5;
     AGroup 14851 2 syms_6; AGroup 14855 2 syms_7; AGroup 14857 2 syms_8; AGroup 14861 2 syms_9;
     AGroup 15425 2 syms_11; SGroup 10647 2 syms_12; SGroup 10482 3 syms_13;
     SGroup 11244 3 syms_30; SGroup 10538 4 syms_31; SGroup 12943 10 syms_32]);
   (42099, 4, [AGroup 5 1 [sym_ppDirective]; AGroup 3 2 syms_5; AGroup 15295 7 syms_34;
     AGroup 15293 45 syms_73]);
   (42163, 25, [AGroup 5 1 [sym_ppDirective]; AGroup 15011 1 [anon_sym_LBRACK];
     AGroup 15013 1 [anon_sym_LPAREN]; AGroup 15017 1 [anon_sym_POUND];
     AGroup 15029 1 [sym_kSpecialize]; AGroup 15035 1 [sym_kIf]; AGroup 15037 1 [sym_kInherited];
     AGroup 15039 1 [sym_kString]; SGroup 3187 1 [aux_sym_declVariant_repeat1];
     SGroup 3889 1 [aux_sym_caseLabel_repeat1]; SGroup 13154 1 [sym_declVariantClause];
     SGroup 13487 1 [sym_range]; SGroup 15684 1 [sym_caseLabel]; AGroup 3 2 syms_5;
     AGroup 15015 2 syms_6; AGroup 15019 2 syms_7; AGroup 15021 2 syms_8; AGroup 15023 2 syms_9;
     AGroup 15025 2 syms_10; AGroup 15033 2 syms_11; SGroup 8466 2 syms_12;
     SGroup 7201 3 syms_13; SGroup 9422 4 syms_14; AGroup 15027 5 syms_15; SGroup 7990 14 syms_17]);
   (42269, 4, [AGroup 5 1 [sym_ppDirective]; AGroup 3 2 syms_5; AGroup 15355 7 syms_34;
     AGroup 15353 45 syms_73]);
   (42333, 32, [AGroup 5 1 [sym_ppDirective]; AGroup 14849 1 [anon_sym_LPAREN];
     AGroup 14853 1 [anon_sym_POUND]; AGroup 14859 1 [aux_sym_ppUsesBlock_token1];
     AGroup 14863 1 [sym_kHat]; AGroup 14865 1 [sym_ppFragmentExpr];
     AGroup 14867 1 [sym_identifier]; AGroup 14871 1 [sym_kSpecialize];
     AGroup 14873 1 [sym_kReference]; AGroup 14875 1 [sym_kArray]; AGroup 14881 1 [sym_kFile];
     AGroup 14889 1 [sym_kSet]; AGroup 14891 1 [sym_kString]; AGroup 15387 1 [sym_kClass];
     AGroup 15391 1 [sym_kPacked]; AGroup 15393 1 [sym_kRecord]; SGroup 3870 1 [sym__ppIf];
     SGroup 10605 1 [sym__subRangeUnary]; SGroup 10614 1 [sym__subRangeBinary];
     SGroup 10620 1 [sym__subRangeCall]; SGroup 12578 1 [sym_type]; AGroup 3 2 syms_5;
     AGroup 14851 2 syms_6; AGroup 14855 2 syms_7; AGroup 14857 2 syms_8; AGroup 14861 2 syms_9;
     AGroup 14883 2 syms_11; SGroup 10647 2 syms_12; SGroup 10482 3 syms_13;
     SGroup 11313 3 syms_30; SGroup 10505 4 syms_31; SGroup 12384 10 syms_32]);
   (42453, 32, [AGroup 5 1 [sym_ppDirective]; AGroup 14853 1 [anon_sym_POUND];
     AGroup 14859 1 [aux_sym_ppUsesBlock_token1]; AGroup 15405 1 [anon_sym_LPAREN];
     AGroup 15407 1 [sym_kHat]; AGroup 15409 1 [sym_ppFragmentExpr];
     AGroup 15411 1 [sym_identifier]; AGroup 15413 1 [sym_kSpecialize];
     AGroup 15415 1 [sym_kReference]; AGroup 15417 1 [sym_kArray]; AGroup 15419 1 [sym_kClass];
     AGroup 15423 1 [sym_kFile]; AGroup 15427 1 [sym_kPacked]; AGroup 15429 1 [sym_kRecord];
     AGroup 15431 1 [sym_kSet]; AGroup 15433 1 [sym_kString]; SGroup 3836 1 [sym__ppIf];
     SGroup 10605 1 [sym__subRangeUnary]; SGroup 10614 1 [sym__subRangeBinary];
     SGroup 10620 1 [sym__subRangeCall]; SGroup 12173 1 [sym_type]; AGroup 3 2 syms_5;
     AGroup 14851 2 syms_6; AGroup 14855 2 syms_7; AGroup 14857 2 syms_8; AGroup 14861 2 syms_9;
     AGroup 15425 2 syms_11; SGroup 10647 2 syms_12; SGroup 10482 3 syms_13;
     SGroup 11244 3 syms_30; SGroup 10538 4 syms_31; SGroup 12943 10 syms_32]);
   (42573, 25, [AGroup 5 1 [sym_ppDirective]; AGroup 15011 1 [anon_sym_LBRACK];
     AGroup 15013 1 [anon_sym_LPAREN]; AGroup 15017 1 [anon_sym_POUND];
     AGroup 15029 1 [sym_kSpecialize]; AGroup 15035 1 [sym_kIf]; AGroup 15037 1 [sym_kInherited];
     AGroup 15039 1 [sym_kString]; SGroup 3205 1 [aux_sym_declVariant_repeat1];
     SGroup 3889 1 [aux_sym_caseLabel_repeat1]; SGroup 13487 1 [sym_range];
     SGroup 13624 1 [sym_declVariantClause]; SGroup 15684 1 [sym_caseLabel]; AGroup 3 2 syms_5;
     AGroup 15015 2 syms_6; AGroup 15019 2 syms_7; AGroup 15021 2 syms_8; AGroup 15023 2 syms_9;
     AGroup 15025 2 syms_10; AGroup 15033 2 syms_11; SGroup 8466 2 syms_12;
     SGroup 7201 3 syms_13; SGroup 9422 4 syms_14; AGroup 15027 5 syms_15; SGroup 7990 14 syms_17]);
   (42679, 32, [AGroup 5 1 [sym_ppDirective]; AGroup 14849 1 [anon_sym_LPAREN];
     AGroup 14853 1 [anon_sym_POUND]; AGroup 14859 1 [aux_sym_ppUsesBlock_token1];
     AGroup 14863 1 [sym_kHat]; AGroup 14865 1 [sym_ppFragmentExpr];
     AGroup 14867 1 [sym_identifier]; AGroup 14871 1 [sym_kSpecialize];
     AGroup 14873 1 [sym_kReference]; AGroup 14875 1 [sym_kArray]; AGroup 14881 1 [sym_kFile];
     AGroup 14889 1 [sym_kSet]; AGroup 14891 1 [sym_kString]; AGroup 15387 1 [sym_kClass];
     AGroup 15391 1 [sym_kPacked]; AGroup 15393 1 [sym_kRecord]; SGroup 3870 1 [sym__ppIf];
     SGroup 10605 1 [sym__subRangeUnary]; SGroup 10614 1 [sym__subRangeBinary];
     SGroup 10620 1 [sym__subRangeCall]; SGroup 12472 1 [sym_type]; AGroup 3 2 syms_5;
     AGroup 14851 2 syms_6; AGroup 14855 2 syms_7; AGroup 14857 2 syms_8; AGroup 14861 2 syms_9;
     AGroup 14883 2 syms_11; SGroup 10647 2 syms_12; SGroup 10482 3 syms_13;
     SGroup 11313 3 syms_30; SGroup 10505 4 syms_31; SGroup 12384 10 syms_32]);
   (42799, 5, [AGroup 5 1 [sym_ppDirective]; AGroup 3 2 syms_5; AGroup 15504 7 syms_34;
     AGroup 15403 18 syms_36; AGroup 15502 27 syms_72]);
   (42865, 32, [AGroup 5 1 [sym_ppDirective]; AGroup 14849 1 [anon_sym_LPAREN];
     AGroup 14853 1 [anon_sym_POUND]; AGroup 14859 1 [aux_sym_ppUsesBlock_token1];
     AGroup 14863 1 [sym_kHat]; AGroup 14865 1 [sym_ppFragmentExpr];
     AGroup 14867 1 [sym_identifier]; AGroup 14871 1 [sym_kSpecialize];
     AGroup 14873 1 [sym_kReference]; AGroup 14875 1 [sym_kArray]; AGroup 14881 1 [sym_kFile];
     AGroup 14889 1 [sym_kSet]; AGroup 14891 1 [sym_kString]; AGroup 15387 1 [sym_kClass];
     AGroup 15391 1 [sym_kPacked]; AGroup 15393 1 [sym_kRecord]; SGroup 3870 1 [sym__ppIf];
     SGroup 10605 1 [sym__subRangeUnary]; SGroup 10614 1 [sym__subRangeBinary];
     SGroup 10620 1 [sym__subRangeCall]; SGroup 13422 1 [sym_type]; AGroup 3 2 syms_5;
     AGroup 14851 2 syms_6; AGroup 14855 2 syms_7; AGroup 14857 2 syms_8; AGroup 14861 2 syms_9;
     AGroup 14883 2 syms_11; SGroup 10647 2 syms_12; SGroup 10482 3 syms_13;
     SGroup 11313 3 syms_30; SGroup 10505 4 syms_31; SGroup 12384 10 syms_32]);
   (42985, 32, [AGroup 5 1 [sym_ppDirective]; AGroup 14853 1 [anon_sym_POUND];
     AGroup 14859 1 [aux_sym_ppUsesBlock_token1]; AGroup 15405 1 [anon_sym_LPAREN];
     AGroup 15407 1 [sym_kHat]; AGroup 15409 1 [sym_ppFragmentExpr];
     AGroup 15411 1 [sym_identifier]; AGroup 15413 1 [sym_kSpecialize];
     AGroup 15415 1 [sym_kReference]; AGroup 15417 1 [sym_kArray]; AGroup 15419 1 [sym_kClass];
     AGroup 15423 1 [sym_kFile]; AGroup 15427 1 [sym_kPacked]; AGroup 15429 1 [sym_kRecord];
     AGroup 15431 1 [sym_kSet]; AGroup 15433 1 [sym_kString]; SGroup 3836 1 [sym__ppIf];
     SGroup 10605 1 [sym__subRangeUnary]; SGroup 10614 1 [sym__subRangeBinary];
     SGroup 10620 1 [sym__subRangeCall]; SGroup 12096 1 [sym_type]; AGroup 3 2 syms_5;
     AGroup 14851 2 syms_6; AGroup 14855 2 syms_7; AGroup 14857 2 syms_8; AGroup 14861 2 syms_9;
     AGroup 15425 2 syms_11; SGroup 10647 2 syms_12; SGroup 10482 3 syms_13;
     SGroup 11244 3 syms_30; SGroup 10538 4 syms_31; SGroup 12943 10 syms_32]);
   (43105, 32, [AGroup 5 1 [sym_ppDirective]; AGroup 14853 1 [anon_sym_POUND];
     AGroup 14859 1 [aux_sym_ppUsesBlock_token1]; AGroup 15405 1 [anon_sym_LPAREN];
     AGroup 15407 1 [sym_kHat]; AGroup 15409 1 [sym_ppFragmentExpr];
     AGroup 15411 1 [sym_identifier]; AGroup 15413 1 [sym_kSpecialize];
     AGroup 15415 1 [sym_kReference]; AGroup 15417 1 [sym_kArray]; AGroup 15419 1 [sym_kClass];
     AGroup 15423 1 [sym_kFile]; AGroup 15427 1 [sym_kPacked]; AGroup 15429 1 [sym_kRecord];
     AGroup 15431 1 [sym_kSet]; AGroup 15433 1 [sym_kString]; SGroup 3836 1 [sym__ppIf];
     SGroup 10605 1 [sym__subRangeUnary]; SGroup 10614 1 [sym__subRangeBinary];
     SGroup 10620 1 [sym__subRangeCall]; SGroup 12181 1 [sym_type]; AGroup 3 2 syms_5;
     AGroup 14851 2 syms_6; AGroup 14855 2 syms_7; AGroup 14857 2 syms_8; AGroup 14861 2 syms_9;
     AGroup 15425 2 syms_11; SGroup 10647 2 syms_12; SGroup 10482 3 syms_13;
     SGroup 11244 3 syms_30; SGroup 10538 4 syms_31; SGroup 12943 10 syms_32]);
   (43225, 32, [AGroup 5 1 [sym_ppDirective]; AGroup 14853 1 [anon_sym_POUND];
     AGroup 14859 1 [aux_sym_ppUsesBlock_token1]; AGroup 15357 1 [anon_sym_LPAREN];
     AGroup 15359 1 [sym_kHat]; AGroup 15361 1 [sym_ppFragmentExpr];
     AGroup 15363 1 [sym_identifier]; AGroup 15365 1 [sym_kSpecialize];
     AGroup 15367 1 [sym_kReference]; AGroup 15369 1 [sym_kArray]; AGroup 15371 1 [sym_kClass];
     AGroup 15375 1 [sym_kFile]; AGroup 15379 1 [sym_kPacked]; AGroup 15381 1 [sym_kRecord];
     AGroup 15383 1 [sym_kSet]; AGroup 15385 1 [sym_kString]; SGroup 3813 1 [sym__ppIf];
     SGroup 10605 1 [sym__subRangeUnary]; SGroup 10614 1 [sym__subRangeBinary];
     SGroup 10620 1 [sym__subRangeCall]; SGroup 10964 1 [sym_type]; AGroup 3 2 syms_5;
     AGroup 14851 2 syms_6; AGroup 14855 2 syms_7; AGroup 14857 2 syms_8; AGroup 14861 2 syms_9;
     AGroup 15377 2 syms_11; SGroup 10647 2 syms_12; SGroup 10482 3 syms_13;
     SGroup 11272 3 syms_30; SGroup 10358 4 syms_31; SGroup 11091 10 syms_32]);
   (43345, 25, [AGroup 5 1 [sym_ppDirective]; AGroup 15011 1 [anon_sym_LBRACK];
     AGroup 15013 1 [anon_sym_LPAREN]; AGroup 15017 1 [anon_sym_POUND];
     AGroup 15029 1 [sym_kSpecialize]; AGroup 15035 1 [sym_kIf]; AGroup 15037 1 [sym_kInherited];
     AGroup 15039 1 [sym_kString]; SGroup 3196 1 [aux_sym_declVariant_repeat1];
     SGroup 3889 1 [aux_sym_caseLabel_repeat1]; SGroup 13487 1 [sym_range];
     SGroup 13557 1 [sym_declVariantClause]; SGroup 15684 1 [sym_caseLabel]; AGroup 3 2 syms_5;
     AGroup 15015 2 syms_6; AGroup 15019 2 syms_7; AGroup 15021 2 syms_8; AGroup 15023 2 syms_9;
     AGroup 15025 2 syms_10; AGroup 15033 2 syms_11; SGroup 8466 2 syms_12;
     SGroup 7201 3 syms_13; SGroup 9422 4 syms_14; AGroup 15027 5 syms_15; SGroup 7990 14 syms_17]);
   (43451, 32, [AGroup 5 1 [sym_ppDirective]; AGroup 14853 1 [anon_sym_POUND];
     AGroup 14859 1 [aux_sym_ppUsesBlock_token1]; AGroup 15405 1 [anon_sym_LPAREN];
     AGroup 15407 1 [sym_kHat]; AGroup 15409 1 [sym_ppFragmentExpr];
     AGroup 15411 1 [sym_identifier]; AGroup 15413 1 [sym_kSpecialize];
     AGroup 15415 1 [sym_kReference]; AGroup 15417 1 [sym_kArray]; AGroup 15419 1 [sym_kClass];
     AGroup 15423 1 [sym_kFile]; AGroup 15427 1 [sym_kPacked]; AGroup 15429 1 [sym_kRecord];
     AGroup 15431 1 [sym_kSet]; AGroup 15433 1 [sym_kString]; SGroup 3836 1 [sym__ppIf];
     SGroup 10605 1 [sym__subRangeUnary]; SGroup 10614 1 [sym__subRangeBinary];
     SGroup 10620 1 [sym__subRangeCall]; SGroup 12188 1 [sym_type]; AGroup 3 2 syms_5;
     AGroup 14851 2 syms_6; AGroup 14855 2 syms_7; AGroup 14857 2 syms_8; AGroup 14861 2 syms_9;
     AGroup 15425 2 syms_11; SGroup 10647 2 syms_12; SGroup 10482 3 syms_13;
     SGroup 11244 3 syms_30; SGroup 10538 4 syms_31; SGroup 12943 10 syms_32]);
   (43571, 25, [AGroup 5 1 [sym_ppDirective]; AGroup 15011 1 [anon_sym_LBRACK];
     AGroup 15013 1 [anon_sym_LPAREN]; AGroup 15017 1 [anon_sym_POUND];
     AGroup 15029 1 [sym_kSpecialize]; AGroup 15035 1 [sym_kIf]; AGroup 15037 1 [sym_kInherited];
     AGroup 15039 1 [sym_kString]; SGroup 3205 1 [aux_sym_declVariant_repeat1];
     SGroup 3889 1 [aux_sym_caseLabel_repeat1]; SGroup 13161 1 [sym_declVariantClause];
     SGroup 13487 1 [sym_range]; SGroup 15684 1 [sym_caseLabel]; AGroup 3 2 syms_5;
     AGroup 15015 2 syms_6; AGroup 15019 2 syms_7; AGroup 15021 2 syms_8; AGroup 15023 2 syms_9;
     AGroup 15025 2 syms_10; AGroup 15033 2 syms_11; SGroup 8466 2 syms_12;
     SGroup 7201 3 syms_13; SGroup 9422 4 syms_14; AGroup 15027 5 syms_15; SGroup 7990 14 syms_17]);
   (43677, 32, [AGroup 5 1 [sym_ppDirective]; AGroup 14853 1 [anon_sym_POUND];
     AGroup 14859 1 [aux_sym_ppUsesBlock_token1]; AGroup 15357 1 [anon_sym_LPAREN];
     AGroup 15359 1 [sym_kHat]; AGroup 15361 1 [sym_ppFragmentExpr];
     AGroup 15363 1 [sym_identifier]; AGroup 15365 1 [sym_kSpecialize];
     AGroup 15367 1 [sym_kReference]; AGroup 15369 1 [sym_kArray]; AGroup 15371 1 [sym_kClass];
     AGroup 15375 1 [sym_kFile]; AGroup 15379 1 [sym_kPacked]; AGroup 15381 1 [sym_kRecord];
     AGroup 15383 1 [sym_kSet]; AGroup 15385 1 [sym_kString]; SGroup 3813 1 [sym__ppIf];
     SGroup 10605 1 [sym__subRangeUnary]; SGroup 10614 1 [sym__subRangeBinary];
     SGroup 10620 1 [sym__subRangeCall]; SGroup 11048 1 [sym_type]; AGroup 3 2 syms_5;
     AGroup 14851 2 syms_6; AGroup 14855 2 syms_7; AGroup 14857 2 syms_8; AGroup 14861 2 syms_9;
     AGroup 15377 2 syms_11; SGroup 10647 2 syms_12; SGroup 10482 3 syms_13;
     SGroup 11272 3 syms_30; SGroup 10358 4 syms_31; SGroup 11091 10 syms_32]);
   (43797, 32, [AGroup 5 1 [sym_ppDirective]; AGroup 14853 1 [anon_sym_POUND];
     AGroup 14859 1 [aux_sym_ppUsesBlock_token1]; AGroup 15357 1 [anon_sym_LPAREN];
     AGroup 15359 1 [sym_kHat]; AGroup 15361 1 [sym_ppFragmentExpr];
     AGroup 15363 1 [sym_identifier]; AGroup 15365 1 [sym_kSpecialize];
     AGroup 15367 1 [sym_kReference]; AGroup 15369 1 [sym_kArray]; AGroup 15371 1 [sym_kClass];
     AGroup 15375 1 [sym_kFile]; AGroup 15379 1 [sym_kPacked]; AGroup 15381 1 [sym_kRecord];
     AGroup 15383 1 [sym_kSet]; AGroup 15385 1 [sym_kString]; SGroup 3813 1 [sym__ppIf];
     SGroup 10605 1 [sym__subRangeUnary]; SGroup 10614 1 [sym__subRangeBinary];
     SGroup 10620 1 [sym__subRangeCall]; SGroup 10897 1 [sym_type]; AGroup 3 2 syms_5;
     AGroup 14851 2 syms_6; AGroup 14855 2 syms_7; AGroup 14857 2 syms_8; AGroup 14861 2 syms_9;
     AGroup 15377 2 syms_11; SGroup 10647 2 syms_12; SGroup 10482 3 syms_13;
     SGroup 11272 3 syms_30; SGroup 10358 4 syms_31; SGroup 11091 10 syms_32]);
   (43917, 21, [AGroup 5 1 [sym_ppDirective]; AGroup 16247 1 [anon_sym_LBRACK];
     AGroup 16249 1 [anon_sym_LPAREN]; AGroup 16253 1 [anon_sym_POUND];
     AGroup 16267 1 [sym_kSpecialize]; AGroup 16271 1 [sym_kIf]; AGroup 16273 1 [sym_kInherited];
     AGroup 16745 1 [sym_kString]; AGroup 3 2 syms_5; AGroup 16251 2 syms_6;
     AGroup 16255 2 syms_7; AGroup 16257 2 syms_8; AGroup 16259 2 syms_9; AGroup 16261 2 syms_10;
     AGroup 16269 2 syms_11; SGroup 8258 2 syms_12; SGroup 7207 3 syms_13; SGroup 9300 4 syms_14;
     AGroup 14747 5 syms_74; AGroup 16263 5 syms_15; SGroup 8006 14 syms_17]);
   (44015, 32, [AGroup 5 1 [sym_ppDirective]; AGroup 14849 1 [anon_sym_LPAREN];
     AGroup 14853 1 [anon_sym_POUND]; AGroup 14859 1 [aux_sym_ppUsesBlock_token1];
     AGroup 14863 1 [sym_kHat]; AGroup 14865 1 [sym_ppFragmentExpr];
     AGroup 14867 1 [sym_identifier]; AGroup 14871 1 [sym_kSpecialize];
     AGroup 14873 1 [sym_kReference]; AGroup 14875 1 [sym_kArray]; AGroup 14881 1 [sym_kFile];
     AGroup 14889 1 [sym_kSet]; AGroup 14891 1 [sym_kString]; AGroup 15387 1 [sym_kClass];
     AGroup 15391 1 [sym_kPacked]; AGroup 15393 1 [sym_kRecord]; SGroup 3870 1 [sym__ppIf];
     SGroup 10605 1 [sym__subRangeUnary]; SGroup 10614 1 [sym__subRangeBinary];
     SGroup 10620 1 [sym__subRangeCall]; SGroup 12933 1 [sym_type]; AGroup 3 2 syms_5;
     AGroup 14851 2 syms_6; AGroup 14855 2 syms_7; AGroup 14857 2 syms_8; AGroup 14861 2 syms_9;
     AGroup 14883 2 syms_11; SGroup 10647 2 syms_12; SGroup 10482 3 syms_13;
     SGroup 11313 3 syms_30; SGroup 10505 4 syms_31; SGroup 12384 10 syms_32]);
   (44135, 25, [AGroup 5 1 [sym_ppDirective]; AGroup 15011 1 [anon_sym_LBRACK];
     AGroup 15013 1 [anon_sym_LPAREN]; AGroup 15017 1 [anon_sym_POUND];
     AGroup 15029 1 [sym_kSpecialize]; AGroup 15035 1 [sym_kIf]; AGroup 15037 1 [sym_kInherited];
     AGroup 15039 1 [sym_kString]; SGroup 3205 1 [aux_sym_declVariant_repeat1];
     SGroup 3889 1 [aux_sym_caseLabel_repeat1]; SGroup 13361 1 [sym_declVariantClause];
     SGroup 13487 1 [sym_range]; SGroup 15709 1 [sym_caseLabel]; AGroup 3 2 syms_5;
     AGroup 15015 2 syms_6; AGroup 15019 2 syms_7; AGroup 15021 2 syms_8; AGroup 15023 2 syms_9;
     AGroup 15025 2 syms_10; AGroup 15033 2 syms_11; SGroup 8466 2 syms_12;
     SGroup 7201 3 syms_13; SGroup 9422 4 syms_14; AGroup 15027 5 syms_15; SGroup 7990 14 syms_17]);
   (44241, 5, [AGroup 5 1 [sym_ppDirective]; AGroup 3 2 syms_5; AGroup 15484 7 syms_34;
     AGroup 15403 18 syms_36; AGroup 15482 27 syms_72]);
   (44307, 32, [AGroup 5 1 [sym_ppDirective]; AGroup 14849 1 [anon_sym_LPAREN];
     AGroup 14853 1 [anon_sym_POUND]; AGroup 14859 1 [aux_sym_ppUsesBlock_token1];
     AGroup 14863 1 [sym_kHat]; AGroup 14865 1 [sym_ppFragmentExpr];
     AGroup 14867 1 [sym_identifier]; AGroup 14871 1 [sym_kSpecialize];
     AGroup 14873 1 [sym_kReference]; AGroup 14875 1 [sym_kArray]; AGroup 14881 1 [sym_kFile];
     AGroup 14889 1 [sym_kSet]; AGroup 14891 1 [sym_kString]; AGroup 15387 1 [sym_kClass];
     AGroup 15391 1 [sym_kPacked]; AGroup 15393 1 [sym_kRecord]; SGroup 3870 1 [sym__ppIf];
     SGroup 10605 1 [sym__subRangeUnary]; SGroup 10614 1 [sym__subRangeBinary];
     SGroup 10620 1 [sym__subRangeCall]; SGroup 11856 1 [sym_type]; AGroup 3 2 syms_5;
     AGroup 14851 2 syms_6; AGroup 14855 2 syms_7; AGroup 14857 2 syms_8; AGroup 14861 2 syms_9;
     AGroup 14883 2 syms_11; SGroup 10647 2 syms_12; SGroup 10482 3 syms_13;
     SGroup 11313 3 syms_30; SGroup 10505 4 syms_31; SGroup 12384 10 syms_32]);
   (44427, 25, [AGroup 5 1 [sym_ppDirective]; AGroup 15011 1 [anon_sym_LBRACK];
     AGroup 15013 1 [anon_sym_LPAREN]; AGroup 15017 1 [anon_sym_POUND];
     AGroup 15029 1 [sym_kSpecialize]; AGroup 15035 1 [sym_kIf]; AGroup 15037 1 [sym_kInherited];
     AGroup 15039 1 [sym_kString]; SGroup 3329 1 [aux_sym_declVariant_repeat1];
     SGroup 3889 1 [aux_sym_caseLabel_repeat1]; SGroup 13119 1 [sym_declVariantClause];
     SGroup 13487 1 [sym_range]; SGroup 15709 1 [sym_caseLabel]; AGroup 3 2 syms_5;
     AGroup 15015 2 syms_6; AGroup 15019 2 syms_7; AGroup 15021 2 syms_8; AGroup 15023 2 syms_9;
     AGroup 15025 2 syms_10; AGroup 15033 2 syms_11; SGroup 8466 2 syms_12;
     SGroup 7201 3 syms_13; SGroup 9422 4 syms_14; AGroup 15027 5 syms_15; SGroup 7990 14 syms_17]);
   (44533, 25, [AGroup 5 1 [sym_ppDirective]; AGroup 16747 1 [anon_sym_LBRACK];
     AGroup 16750 1 [anon_sym_LPAREN]; AGroup 16756 1 [anon_sym_POUND];
     AGroup 16774 1 [sym_kSpecialize]; AGroup 16780 1 [sym_kIf]; AGroup 16783 1 [sym_kInherited];
     AGroup 16786 1 [sym_kString]; SGroup 3205 1 [aux_sym_declVariant_repeat1];
     SGroup 3889 1 [aux_sym_caseLabel_repeat1]; SGroup 13487 1 [sym_range];
     SGroup 14499 1 [sym_declVariantClause]; SGroup 15684 1 [sym_caseLabel]; AGroup 3 2 syms_5;
     AGroup 16753 2 syms_6; AGroup 16759 2 syms_7; AGroup 16762 2 syms_8; AGroup 16765 2 syms_9;
     AGroup 16768 2 syms_10; AGroup 16777 2 syms_11; SGroup 8466 2 syms_12;
     SGroup 7201 3 syms_13; SGroup 9422 4 syms_14; AGroup 16771 5 syms_15; SGroup 7990 14 syms_17]);
   (44639, 21, [AGroup 5 1 [sym_ppDirective]; AGroup 16247 1 [anon_sym_LBRACK];
     AGroup 16249 1 [anon_sym_LPAREN]; AGroup 16253 1 [anon_sym_POUND];
     AGroup 16267 1 [sym_kSpecialize]; AGroup 16271 1 [sym_kIf]; AGroup 16273 1 [sym_kInherited];
     AGroup 16745 1 [sym_kString]; AGroup 3 2 syms_5; AGroup 16251 2 syms_6;
     AGroup 16255 2 syms_7; AGroup 16257 2 syms_8; AGroup 16259 2 syms_9; AGroup 16261 2 syms_10;
     AGroup 16269 2 syms_11; SGroup 8258 2 syms_12; SGroup 7207 3 syms_13; SGroup 9305 4 syms_14;
     AGroup 14765 5 syms_74; AGroup 16263 5 syms_15; SGroup 8006 14 syms_17]);
   (44737, 32, [AGroup 5 1 [sym_ppDirective]; AGroup 14849 1 [anon_sym_LPAREN];
     AGroup 14853 1 [anon_sym_POUND]; AGroup 14859 1 [aux_sym_ppUsesBlock_token1];
     AGroup 14863 1 [sym_kHat]; AGroup 14865 1 [sym_ppFragmentExpr];
     AGroup 14867 1 [sym_identifier]; AGroup 14871 1 [sym_kSpecialize];
     AGroup 14873 1 [sym_kReference]; AGroup 14875 1 [sym_kArray]; AGroup 14881 1 [sym_kFile];
     AGroup 14889 1 [sym_kSet]; AGroup 14891 1 [sym_kString]; AGroup 15387 1 [sym_kClass];
     AGroup 15391 1 [sym_kPacked]; AGroup 15393 1 [sym_kRecord]; SGroup 3870 1 [sym__ppIf];
     SGroup 10605 1 [sym__subRangeUnary]; SGroup 10614 1 [sym__subRangeBinary];
     SGroup 10620 1 [sym__subRangeCall]; SGroup 12857 1 [sym_type]; AGroup 3 2 syms_5;
     AGroup 14851 2 syms_6; AGroup 14855 2 syms_7; AGroup 14857 2 syms_8; AGroup 14861 2 syms_9;
     AGroup 14883 2 syms_11; SGroup 10647 2 syms_12; SGroup 10482 3 syms_13;
     SGroup 11313 3 syms_30; SGroup 10505 4 syms_31; SGroup 12384 10 syms_32]);
   (44857, 32, [AGroup 5 1 [sym_ppDirective]; AGroup 14853 1 [anon_sym_POUND];
     AGroup 14859 1 [aux_sym_ppUsesBlock_token1]; AGroup 15405 1 [anon_sym_LPAREN];
     AGroup 15407 1 [sym_kHat]; AGroup 15409 1 [sym_ppFragmentExpr];
     AGroup 15411 1 [sym_identifier]; AGroup 15413 1 [sym_kSpecialize];
     AGroup 15415 1 [sym_kReference]; AGroup 15417 1 [sym_kArray]; AGroup 15419 1 [sym_kClass];
     AGroup 15423 1 [sym_kFile]; AGroup 15427 1 [sym_kPacked]; AGroup 15429 1 [sym_kRecord];
     AGroup 15431 1 [sym_kSet]; AGroup 15433 1 [sym_kString]; SGroup 3836 1 [sym__ppIf];
     SGroup 10605 1 [sym__subRangeUnary]; SGroup 10614 1 [sym__subRangeBinary];
     SGroup 10620 1 [sym__subRangeCall]; SGroup 12239 1 [sym_type]; AGroup 3 2 syms_5;
     AGroup 14851 2 syms_6; AGroup 14855 2 syms_7; AGroup 14857 2 syms_8; AGroup 14861 2 syms_9;
     AGroup 15425 2 syms_11; SGroup 10647 2 syms_12; SGroup 10482 3 syms_13;
     SGroup 11244 3 syms_30; SGroup 10538 4 syms_31; SGroup 12943 10 syms_32]);
   (44977, 32, [AGroup 5 1 [sym_ppDirective]; AGroup 14853 1 [anon_sym_POUND];
     AGroup 14859 1 [aux_sym_ppUsesBlock_token1]; AGroup 15405 1 [anon_sym_LPAREN];
     AGroup 15407 1 [sym_kHat]; AGroup 15409 1 [sym_ppFragmentExpr];
     AGroup 15411 1 [sym_identifier]; AGroup 15413 1 [sym_kSpecialize];
     AGroup 15415 1 [sym_kReference]; AGroup 15417 1 [sym_kArray]; AGroup 15419 1 [sym_kClass];
     AGroup 15423 1 [sym_kFile]; AGroup 15427 1 [sym_kPacked]; AGroup 15429 1 [sym_kRecord];
     AGroup 15431 1 [sym_kSet]; AGroup 15433 1 [sym_kString]; SGroup 3836 1 [sym__ppIf];
     SGroup 10605 1 [sym__subRangeUnary]; SGroup 10614 1 [sym__subRangeBinary];
     SGroup 10620 1 [sym__subRangeCall]; SGroup 12241 1 [sym_type]; AGroup 3 2 syms_5;
     AGroup 14851 2 syms_6; AGroup 14855 2 syms_7; AGroup 14857 2 syms_8; AGroup 14861 2 syms_9;
     AGroup 15425 2 syms_11; SGroup 10647 2 syms_12; SGroup 10482 3 syms_13;
     SGroup 11244 3 syms_30; SGroup 10538 4 syms_31; SGroup 12943 10 syms_32]);
   (45097, 32, [AGroup 5 1 [sym_ppDirective]; AGroup 14849 1 [anon_sym_LPAREN];
     AGroup 14853 1 [anon_sym_POUND]; AGroup 14859 1 [aux_sym_ppUsesBlock_token1];
     AGroup 14863 1 [sym_kHat]; AGroup 14865 1 [sym_ppFragmentExpr];
     AGroup 14867 1 [sym_identifier]; AGroup 14871 1 [sym_kSpecialize];
     AGroup 14873 1 [sym_kReference]; AGroup 14875 1 [sym_kArray]; AGroup 14881 1 [sym_kFile];
     AGroup 14889 1 [sym_kSet]; AGroup 14891 1 [sym_kString]; AGroup 15387 1 [sym_kClass];
     AGroup 15391 1 [sym_kPacked]; AGroup 15393 1 [sym_kRecord]; SGroup 3870 1 [sym__ppIf];
     SGroup 10605 1 [sym__subRangeUnary]; SGroup 10614 1 [sym__subRangeBinary];
     SGroup 10620 1 [sym__subRangeCall]; SGroup 12512 1 [sym_type]; AGroup 3 2 syms_5;
     AGroup 14851 2 syms_6; AGroup 14855 2 syms_7; AGroup 14857 2 syms_8; AGroup 14861 2 syms_9;
     AGroup 14883 2 syms_11; SGroup 10647 2 syms_12; SGroup 10482 3 syms_13;
     SGroup 11313 3 syms_30; SGroup 10505 4 syms_31; SGroup 12384 10 syms_32]);
   (45217, 32, [AGroup 5 1 [sym_ppDirective]; AGroup 14849 1 [anon_sym_LPAREN];
     AGroup 14853 1 [anon_sym_POUND]; AGroup 14859 1 [aux_sym_ppUsesBlock_token1];
     AGroup 14863 1 [sym_kHat]; AGroup 14865 1 [sym_ppFragmentExpr];
     AGroup 14867 1 [sym_identifier]; AGroup 14871 1 [sym_kSpecialize];
     AGroup 14873 1 [sym_kReference]; AGroup 14875 1 [sym_kArray]; AGroup 14881 1 [sym_kFile];
     AGroup 14889 1 [sym_kSet]; AGroup 14891 1 [sym_kString]; AGroup 15387 1 [sym_kClass];
     AGroup 15391 1 [sym_kPacked]; AGroup 15393 1 [sym_kRecord]; SGroup 3870 1 [sym__ppIf];
     SGroup 10605 1 [sym__subRangeUnary]; SGroup 10614 1 [sym__subRangeBinary];
     SGroup 10620 1 [sym__subRangeCall]; SGroup 13493 1 [sym_type]; AGroup 3 2 syms_5;
     AGroup 14851 2 syms_6; AGroup 14855 2 syms_7; AGroup 14857 2 syms_8; AGroup 14861 2 syms_9;
     AGroup 14883 2 syms_11; SGroup 10647 2 syms_12; SGroup 10482 3 syms_13;
     SGroup 11313 3 syms_30; SGroup 10505 4 syms_31; SGroup 12384 10 syms_32]);
   (45337, 32, [AGroup 5 1 [sym_ppDirective]; AGroup 14849 1 [anon_sym_LPAREN];
     AGroup 14853 1 [anon_sym_POUND]; AGroup 14859 1 [aux_sym_ppUsesBlock_token1];
     AGroup 14863 1 [sym_kHat]; AGroup 14865 1 [sym_ppFragmentExpr];
     AGroup 14867 1 [sym_identifier]; AGroup 14871 1 [sym_kSpecialize];
     AGroup 14873 1 [sym_kReference]; AGroup 14875 1 [sym_kArray]; AGroup 14881 1 [sym_kFile];
     AGroup 14889 1 [sym_kSet]; AGroup 14891 1 [sym_kString]; AGroup 15387 1 [sym_kClass];
     AGroup 15391 1 [sym_kPacked]; AGroup 15393 1 [sym_kRecord]; SGroup 3870 1 [sym__ppIf];
     SGroup 10605 1 [sym__subRangeUnary]; SGroup 10614 1 [sym__subRangeBinary];
     SGroup 10620 1 [sym__subRangeCall]; SGroup 12651 1 [sym_type]; AGroup 3 2 syms_5;
     AGroup 14851 2 syms_6; AGroup 14855 2 syms_7; AGroup 14857 2 syms_8; AGroup 14861 2 syms_9;
     AGroup 14883 2 syms_11; SGroup 10647 2 syms_12; SGroup 10482 3 syms_13;
     SGroup 11313 3 syms_30; SGroup 10505 4 syms_31; SGroup 12384 10 syms_32]);
   (45457, 32, [AGroup 5 1 [sym_ppDirective]; AGroup 14849 1 [anon_sym_LPAREN];
     AGroup 14853 1 [anon_sym_POUND]; AGroup 14859 1 [aux_sym_ppUsesBlock_token1];
     AGroup 14863 1 [sym_kHat]; AGroup 14865 1 [sym_ppFragmentExpr];
     AGroup 14867 1 [sym_identifier]; AGroup 14871 1 [sym_kSpecialize];
     AGroup 14873 1 [sym_kReference]; AGroup 14875 1 [sym_kArray]; AGroup 14881 1 [sym_kFile];
     AGroup 14889 1 [sym_kSet]; AGroup 14891 1 [sym_kString]; AGroup 15387 1 [sym_kClass];
     AGroup 15391 1 [sym_kPacked]; AGroup 15393 1 [sym_kRecord]; SGroup 3870 1 [sym__ppIf];
     SGroup 10605 1 [sym__subRangeUnary]; SGroup 10614 1 [sym__subRangeBinary];
     SGroup 10620 1 [sym__subRangeCall]; SGroup 13138 1 [sym_type]; AGroup 3 2 syms_5;
     AGroup 14851 2 syms_6; AGroup 14855 2 syms_7; AGroup 14857 2 syms_8; AGroup 14861 2 syms_9;
     AGroup 14883 2 syms_11; SGroup 10647 2 syms_12; SGroup 10482 3 syms_13;
     SGroup 11313 3 syms_30; SGroup 10505 4 syms_31; SGroup 12384 10 syms_32]);
   (45577, 32, [AGroup 5 1 [sym_ppDirective]; AGroup 14849 1 [anon_sym_LPAREN];
     AGroup 14853 1 [anon_sym_POUND]; AGroup 14859 1 [aux_sym_ppUsesBlock_token1];
     AGroup 14863 1 [sym_kHat]; AGroup 14865 1 [sym_ppFragmentExpr];
     AGroup 14867 1 [sym_identifier]; AGroup 14871 1 [sym_kSpecialize];
     AGroup 14873 1 [sym_kReference]; AGroup 14875 1 [sym_kArray]; AGroup 14881 1 [sym_kFile];
     AGroup 14889 1 [sym_kSet]; AGroup 14891 1 [sym_kString]; AGroup 15387 1 [sym_kClass];
     AGroup 15391 1 [sym_kPacked]; AGroup 15393 1 [sym_kRecord]; SGroup 3870 1 [sym__ppIf];
     SGroup 10605 1 [sym__subRangeUnary]; SGroup 10614 1 [sym__subRangeBinary];
     SGroup 10620 1 [sym__subRangeCall]; SGroup 12747 1 [sym_type]; AGroup 3 2 syms_5;
     AGroup 14851 2 syms_6; AGroup 14855 2 syms_7; AGroup 14857 2 syms_8; AGroup 14861 2 syms_9;
     AGroup 14883 2 syms_11; SGroup 10647 2 syms_12; SGroup 10482 3 syms_13;
     SGroup 11313 3 syms_30; SGroup 10505 4 syms_31; SGroup 12384 10 syms_32]);
   (45697, 32, [AGroup 5 1 [sym_ppDirective]; AGroup 14853 1 [anon_sym_POUND];
     AGroup 14859 1 [aux_sym_ppUsesBlock_token1]; AGroup 15405 1 [anon_sym_LPAREN];
     AGroup 15407 1 [sym_kHat]; AGroup 15409 1 [sym_ppFragmentExpr];
     AGroup 15411 1 [sym_identifier]; AGroup 15413 1 [sym_kSpecialize];
     AGroup 15415 1 [sym_kReference]; AGroup 15417 1 [sym_kArray]; AGroup 15419 1 [sym_kClass];
     AGroup 15423 1 [sym_kFile]; AGroup 15427 1 [sym_kPacked]; AGroup 15429 1 [sym_kRecord];
     AGroup 15431 1 [sym_kSet]; AGroup 15433 1 [sym_kString]; SGroup 3836 1 [sym__ppIf];
     SGroup 10605 1 [sym__subRangeUnary]; SGroup 10614 1 [sym__subRangeBinary];
     SGroup 10620 1 [sym__subRangeCall]; SGroup 12203 1 [sym_type]; AGroup 3 2 syms_5;
     AGroup 14851 2 syms_6; AGroup 14855 2 syms_7; AGroup 14857 2 syms_8; AGroup 14861 2 syms_9;
     AGroup 15425 2 syms_11; SGroup 10647 2 syms_12; SGroup 10482 3 syms_13;
     SGroup 11244 3 syms_30; SGroup 10538 4 syms_31; SGroup 12943 10 syms_32]);
   (45817, 32, [AGroup 5 1 [sym_ppDirective]; AGroup 14853 1 [anon_sym_POUND];
     AGroup 14859 1 [aux_sym_ppUsesBlock_token1]; AGroup 15405 1 [anon_sym_LPAREN];
     AGroup 15407 1 [sym_kHat]; AGroup 15409 1 [sym_ppFragmentExpr];
     AGroup 15411 1 [sym_identifier]; AGroup 15413 1 [sym_kSpecialize];
     AGroup 15415 1 [sym_kReference]; AGroup 15417 1 [sym_kArray]; AGroup 15419 1 [sym_kClass];
     AGroup 15423 1 [sym_kFile]; AGroup 15427 1 [sym_kPacked]; AGroup 15429 1 [sym_kRecord];
     AGroup 15431 1 [sym_kSet]; AGroup 15433 1 [sym_kString]; SGroup 3836 1 [sym__ppIf];
     SGroup 10605 1 [sym__subRangeUnary]; SGroup 10614 1 [sym__subRangeBinary];
     SGroup 10620 1 [sym__subRangeCall]; SGroup 12211 1 [sym_type]; AGroup 3 2 syms_5;
     AGroup 14851 2 syms_6; AGroup 14855 2 syms_7; AGroup 14857 2 syms_8; AGroup 14861 2 syms_9;
     AGroup 15425 2 syms_11; SGroup 10647 2 syms_12; SGroup 10482 3 syms_13;
     SGroup 11244 3 syms_30; SGroup 10538 4 syms_31; SGroup 12943 10 syms_32]);
   (45937, 32, [AGroup 5 1 [sym_ppDirective]; AGroup 14853 1 [anon_sym_POUND];
     AGroup 14859 1 [aux_sym_ppUsesBlock_token1]; AGroup 15405 1 [anon_sym_LPAREN];
     AGroup 15407 1 [sym_kHat]; AGroup 15409 1 [sym_ppFragmentExpr];
     AGroup 15411 1 [sym_identifier]; AGroup 15413 1 [sym_kSpecialize];
     AGroup 15415 1 [sym_kReference]; AGroup 15417 1 [sym_kArray]; AGroup 15419 1 [sym_kClass];
     AGroup 15423 1 [sym_kFile]; AGroup 15427 1 [sym_kPacked]; AGroup 15429 1 [sym_kRecord];
     AGroup 15431 1 [sym_kSet]; AGroup 15433 1 [sym_kString]; SGroup 3836 1 [sym__ppIf];
     SGroup 10605 1 [sym__subRangeUnary]; SGroup 10614 1 [sym__subRangeBinary];
     SGroup 10620 1 [sym__subRangeCall]; SGroup 12233 1 [sym_type]; AGroup 3 2 syms_5;
     AGroup 14851 2 syms_6; AGroup 14855 2 syms_7; AGroup 14857 2 syms_8; AGroup 14861 2 syms_9;
     AGroup 15425 2 syms_11; SGroup 10647 2 syms_12; SGroup 10482 3 syms_13;
     SGroup 11244 3 syms_30; SGroup 10538 4 syms_31; SGroup 12943 10 syms_32]);
   (46057, 32, [AGroup 5 1 [sym_ppDirective]; AGroup 14853 1 [anon_sym_POUND];
     AGroup 14859 1 [aux_sym_ppUsesBlock_token1]; AGroup 15405 1 [anon_sym_LPAREN];
     AGroup 15407 1 [sym_kHat]; AGroup 15409 1 [sym_ppFragmentExpr];
     AGroup 15411 1 [sym_identifier]; AGroup 15413 1 [sym_kSpecialize];
     AGroup 15415 1 [sym_kReference]; AGroup 15417 1 [sym_kArray]; AGroup 15419 1 [sym_kClass];
     AGroup 15423 1 [sym_kFile]; AGroup 15427 1 [sym_kPacked]; AGroup 15429 1 [sym_kRecord];
     AGroup 15431 1 [sym_kSet]; AGroup 15433 1 [sym_kString]; SGroup 3836 1 [sym__ppIf];
     SGroup 10605 1 [sym__subRangeUnary]; SGroup 10614 1 [sym__subRangeBinary];
     SGroup 10620 1 [sym__subRangeCall]; SGroup 12455 1 [sym_type]; AGroup 3 2 syms_5;
     AGroup 14851 2 syms_6; AGroup 14855 2 syms_7; AGroup 14857 2 syms_8; AGroup 14861 2 syms_9;
     AGroup 15425 2 syms_11; SGroup 10647 2 syms_12; SGroup 10482 3 syms_13;
     SGroup 11244 3 syms_30; SGroup 10538 4 syms_31; SGroup 12943 10 syms_32]);
   (46177, 32, [AGroup 5 1 [sym_ppDirective]; AGroup 14853 1 [anon_sym_POUND];
     AGroup 14859 1 [aux_sym_ppUsesBlock_token1]; AGroup 15357 1 [anon_sym_LPAREN];
     AGroup 15359 1 [sym_kHat]; AGroup 15361 1 [sym_ppFragmentExpr];
     AGroup 15363 1 [sym_identifier]; AGroup 15365 1 [sym_kSpecialize];
     AGroup 15367 1 [sym_kReference]; AGroup 15369 1 [sym_kArray]; AGroup 15371 1 [sym_kClass];
     AGroup 15375 1 [sym_kFile]; AGroup 15379 1 [sym_kPacked]; AGroup 15381 1 [sym_kRecord];
     AGroup 15383 1 [sym_kSet]; AGroup 15385 1 [sym_kString]; SGroup 3813 1 [sym__ppIf];
     SGroup 10605 1 [sym__subRangeUnary]; SGroup 10614 1 [sym__subRangeBinary];
     SGroup 10620 1 [sym__subRangeCall]; SGroup 10936 1 [sym_type]; AGroup 3 2 syms_5;
     AGroup 14851 2 syms_6; AGroup 14855 2 syms_7; AGroup 14857 2 syms_8; AGroup 14861 2 syms_9;
     AGroup 15377 2 syms_11; SGroup 10647 2 syms_12; SGroup 10482 3 syms_13;
     SGroup 11272 3 syms_30; SGroup 10358 4 syms_31; SGroup 11091 10 syms_32]);
   (46297, 32, [AGroup 5 1 [sym_ppDirective]; AGroup 14853 1 [anon_sym_POUND];
     AGroup 14859 1 [aux_sym_ppUsesBlock_token1]; AGroup 15357 1 [anon_sym_LPAREN];
     AGroup 15359 1 [sym_kHat]; AGroup 15361 1 [sym_ppFragmentExpr];
     AGroup 15363 1 [sym_identifier]; AGroup 15365 1 [sym_kSpecialize];
     AGroup 15367 1 [sym_kReference]; AGroup 15369 1 [sym_kArray]; AGroup 15371 1 [sym_kClass];
     AGroup 15375 1 [sym_kFile]; AGroup 15379 1 [sym_kPacked]; AGroup 15381 1 [sym_kRecord];
     AGroup 15383 1 [sym_kSet]; AGroup 15385 1 [sym_kString]; SGroup 3813 1 [sym__ppIf];
     SGroup 10605 1 [sym__subRangeUnary]; SGroup 10614 1 [sym__subRangeBinary];
     SGroup 10620 1 [sym__subRangeCall]; SGroup 11049 1 [sym_type]; AGroup 3 2 syms_5;
     AGroup 14851 2 syms_6; AGroup 14855 2 syms_7; AGroup 14857 2 syms_8; AGroup 14861 2 syms_9;
     AGroup 15377 2 syms_11; SGroup 10647 2 syms_12; SGroup 10482 3 syms_13;
     SGroup 11272 3 syms_30; SGroup 10358 4 syms_31; SGroup 11091 10 syms_32]);
   (46417, 32, [AGroup 5 1 [sym_ppDirective]; AGroup 14849 1 [anon_sym_LPAREN];
     AGroup 14853 1 [anon_sym_POUND]; AGroup 14859 1 [aux_sym_ppUsesBlock_token1];
     AGroup 14863 1 [sym_kHat]; AGroup 14865 1 [sym_ppFragmentExpr];
     AGroup 14867 1 [sym_identifier]; AGroup 14871 1 [sym_kSpecialize];
     AGroup 14873 1 [sym_kReference]; AGroup 14875 1 [sym_kArray]; AGroup 14881 1 [sym_kFile];
     AGroup 14889 1 [sym_kSet]; AGroup 14891 1 [sym_kString]; AGroup 15387 1 [sym_kClass];
     AGroup 15391 1 [sym_kPacked]; AGroup 15393 1 [sym_kRecord]; SGroup 3870 1 [sym__ppIf];
     SGroup 10605 1 [sym__subRangeUnary]; SGroup 10614 1 [sym__subRangeBinary];
     SGroup 10620 1 [sym__subRangeCall]; SGroup 12841 1 [sym_type]; AGroup 3 2 syms_5;
     AGroup 14851 2 syms_6; AGroup 14855 2 syms_7; AGroup 14857 2 syms_8; AGroup 14861 2 syms_9;
     AGroup 14883 2 syms_11; SGroup 10647 2 syms_12; SGroup 10482 3 syms_13;
     SGroup 11313 3 syms_30; SGroup 10505 4 syms_31; SGroup 12384 10 syms_32]);
   (46537, 24, [AGroup 5 1 [sym_ppDirective]; AGroup 15647 1 [anon_sym_LBRACK];
     AGroup 15649 1 [anon_sym_LPAREN]; AGroup 15653 1 [anon_sym_POUND];
     AGroup 15665 1 [sym_identifier]; AGroup 15667 1 [sym_kSpecialize];
     AGroup 15673 1 [sym_kInherited]; AGroup 15675 1 [sym_kString]; AGroup 15755 1 [sym_kIf];
     SGroup 3350 1 [aux_sym_recInitializer_repeat1]; SGroup 13753 1 [sym_recInitializerField];
     AGroup 3 2 syms_5; AGroup 15651 2 syms_6; AGroup 15655 2 syms_7; AGroup 15657 2 syms_8;
     AGroup 15669 2 syms_11; AGroup 15747 2 syms_9; AGroup 15749 2 syms_10;
     SGroup 8129 2 syms_12; SGroup 7100 3 syms_13; SGroup 13515 3 syms_56;
     AGroup 15751 4 syms_57; SGroup 9426 4 syms_14; SGroup 8464 14 syms_17]);
   (46641, 32, [AGroup 5 1 [sym_ppDirective]; AGroup 14849 1 [anon_sym_LPAREN];
     AGroup 14853 1 [anon_sym_POUND]; AGroup 14859 1 [aux_sym_ppUsesBlock_token1];
     AGroup 14863 1 [sym_kHat]; AGroup 14865 1 [sym_ppFragmentExpr];
     AGroup 14867 1 [sym_identifier]; AGroup 14871 1 [sym_kSpecialize];
     AGroup 14873 1 [sym_kReference]; AGroup 14875 1 [sym_kArray]; AGroup 14881 1 [sym_kFile];
     AGroup 14889 1 [sym_kSet]; AGroup 14891 1 [sym_kString]; AGroup 15387 1 [sym_kClass];
     AGroup 15391 1 [sym_kPacked]; AGroup 15393 1 [sym_kRecord]; SGroup 3870 1 [sym__ppIf];
     SGroup 10605 1 [sym__subRangeUnary]; SGroup 10614 1 [sym__subRangeBinary];
     SGroup 10620 1 [sym__subRangeCall]; SGroup 12900 1 [sym_type]; AGroup 3 2 syms_5;
     AGroup 14851 2 syms_6; AGroup 14855 2 syms_7; AGroup 14857 2 syms_8; AGroup 14861 2 syms_9;
     AGroup 14883 2 syms_11; SGroup 10647 2 syms_12; SGroup 10482 3 syms_13;
     SGroup 11313 3 syms_30; SGroup 10505 4 syms_31; SGroup 12384 10 syms_32]);
   (46761, 32, [AGroup 5 1 [sym_ppDirective]; AGroup 14849 1 [anon_sym_LPAREN];
     AGroup 14853 1 [anon_sym_POUND]; AGroup 14859 1 [aux_sym_ppUsesBlock_token1];
     AGroup 14863 1 [sym_kHat]; AGroup 14865 1 [sym_ppFragmentExpr];
     AGroup 14867 1 [sym_identifier]; AGroup 14871 1 [sym_kSpecialize];
     AGroup 14873 1 [sym_kReference]; AGroup 14875 1 [sym_kArray]; AGroup 14881 1 [sym_kFile];
     AGroup 14889 1 [sym_kSet]; AGroup 14891 1 [sym_kString]; AGroup 15387 1 [sym_kClass];
     AGroup 15391 1 [sym_kPacked]; AGroup 15393 1 [sym_kRecord]; SGroup 3870 1 [sym__ppIf];
     SGroup 10605 1 [sym__subRangeUnary]; SGroup 10614 1 [sym__subRangeBinary];
     SGroup 10620 1 [sym__subRangeCall]; SGroup 12919 1 [sym_type]; AGroup 3 2 syms_5;
     AGroup 14851 2 syms_6; AGroup 14855 2 syms_7; AGroup 14857 2 syms_8; AGroup 14861 2 syms_9;
     AGroup 14883 2 syms_11; SGroup 10647 2 syms_12; SGroup 10482 3 syms_13;
     SGroup 11313 3 syms_30; SGroup 10505 4 syms_31; SGroup 12384 10 syms_32]);
   (46881, 32, [AGroup 5 1 [sym_ppDirective]; AGroup 14849 1 [anon_sym_LPAREN];
     AGroup 14853 1 [anon_sym_POUND]; AGroup 14859 1 [aux_sym_ppUsesBlock_token1];
     AGroup 14863 1 [sym_kHat]; AGroup 14865 1 [sym_ppFragmentExpr];
     AGroup 14867 1 [sym_identifier]; AGroup 14871 1 [sym_kSpecialize];
     AGroup 14873 1 [sym_kReference]; AGroup 14875 1 [sym_kArray]; AGroup 14881 1 [sym_kFile];
     AGroup 14889 1 [sym_kSet]; AGroup 14891 1 [sym_kString]; AGroup 15387 1 [sym_kClass];
     AGroup 15391 1 [sym_kPacked]; AGroup 15393 1 [sym_kRecord]; SGroup 3870 1 [sym__ppIf];
     SGroup 10605 1 [sym__subRangeUnary]; SGroup 10614 1 [sym__subRangeBinary];
     SGroup 10620 1 [sym__subRangeCall]; SGroup 12923 1 [sym_type]; AGroup 3 2 syms_5;
     AGroup 14851 2 syms_6; AGroup 14855 2 syms_7; AGroup 14857 2 syms_8; AGroup 14861 2 syms_9;
     AGroup 14883 2 syms_11; SGroup 10647 2 syms_12; SGroup 10482 3 syms_13;
     SGroup 11313 3 syms_30; SGroup 10505 4 syms_31; SGroup 12384 10 syms_32]);
   (47001, 32, [AGroup 5 1 [sym_ppDirective]; AGroup 14853 1 [anon_sym_POUND];
     AGroup 14859 1 [aux_sym_ppUsesBlock_token1]; AGroup 15405 1 [anon_sym_LPAREN];
     AGroup 15407 1 [sym_kHat]; AGroup 15409 1 [sym_ppFragmentExpr];
     AGroup 15411 1 [sym_identifier]; AGroup 15413 1 [sym_kSpecialize];
     AGroup 15415 1 [sym_kReference]; AGroup 15417 1 [sym_kArray]; AGroup 15419 1 [sym_kClass];
     AGroup 15423 1 [sym_kFile]; AGroup 15427 1 [sym_kPacked]; AGroup 15429 1 [sym_kRecord];
     AGroup 15431 1 [sym_kSet]; AGroup 15433 1 [sym_kString]; SGroup 3836 1 [sym__ppIf];
     SGroup 10605 1 [sym__subRangeUnary]; SGroup 10614 1 [sym__subRangeBinary];
     SGroup 10620 1 [sym__subRangeCall]; SGroup 12200 1 [sym_type]; AGroup 3 2 syms_5;
     AGroup 14851 2 syms_6; AGroup 14855 2 syms_7; AGroup 14857 2 syms_8; AGroup 14861 2 syms_9;
     AGroup 15425 2 syms_11; SGroup 10647 2 syms_12; SGroup 10482 3 syms_13;
     SGroup 11244 3 syms_30; SGroup 10538 4 syms_31; SGroup 12943 10 syms_32]);
   (47121, 32, [AGroup 5 1 [sym_ppDirective]; AGroup 14853 1 [anon_sym_POUND];
     AGroup 14859 1 [aux_sym_ppUsesBlock_token1]; AGroup 15405 1 [anon_sym_LPAREN];
     AGroup 15407 1 [sym_kHat]; AGroup 15409 1 [sym_ppFragmentExpr];
     AGroup 15411 1 [sym_identifier]; AGroup 15413 1 [sym_kSpecialize];
     AGroup 15415 1 [sym_kReference]; AGroup 15417 1 [sym_kArray]; AGroup 15419 1 [sym_kClass];
     AGroup 15423 1 [sym_kFile]; AGroup 15427 1 [sym_kPacked]; AGroup 15429 1 [sym_kRecord];
     AGroup 15431 1 [sym_kSet]; AGroup 15433 1 [sym_kString]; SGroup 3836 1 [sym__ppIf];
     SGroup 10605 1 [sym__subRangeUnary]; SGroup 10614 1 [sym__subRangeBinary];
     SGroup 10620 1 [sym__subRangeCall]; SGroup 12207 1 [sym_type]; AGroup 3 2 syms_5;
     AGroup 14851 2 syms_6; AGroup 14855 2 syms_7; AGroup 14857 2 syms_8; AGroup 14861 2 syms_9;
     AGroup 15425 2 syms_11; SGroup 10647 2 syms_12; SGroup 10482 3 syms_13;
     SGroup 11244 3 syms_30; SGroup 10538 4 syms_31; SGroup 12943 10 syms_32]);
   (47241, 32, [AGroup 5 1 [sym_ppDirective]; AGroup 14849 1 [anon_sym_LPAREN];
     AGroup 14853 1 [anon_sym_POUND]; AGroup 14859 1 [aux_sym_ppUsesBlock_token1];
     AGroup 14863 1 [sym_kHat]; AGroup 14865 1 [sym_ppFragmentExpr];
     AGroup 14867 1 [sym_identifier]; AGroup 14871 1 [sym_kSpecialize];
     AGroup 14873 1 [sym_kReference]; AGroup 14875 1 [sym_kArray]; AGroup 14881 1 [sym_kFile];
     AGroup 14889 1 [sym_kSet]; AGroup 14891 1 [sym_kString]; AGroup 15387 1 [sym_kClass];
     AGroup 15391 1 [sym_kPacked]; AGroup 15393 1 [sym_kRecord]; SGroup 3870 1 [sym__ppIf];
     SGroup 10605 1 [sym__subRangeUnary]; SGroup 10614 1 [sym__subRangeBinary];
     SGroup 10620 1 [sym__subRangeCall]; SGroup 12735 1 [sym_type]; AGroup 3 2 syms_5;
     AGroup 14851 2 syms_6; AGroup 14855 2 syms_7; AGroup 14857 2 syms_8; AGroup 14861 2 syms_9;
     AGroup 14883 2 syms_11; SGroup 10647 2 syms_12; SGroup 10482 3 syms_13;
     SGroup 11313 3 syms_30; SGroup 10505 4 syms_31; SGroup 12384 10 syms_32]);
   (47361, 32, [AGroup 5 1 [sym_ppDirective]; AGroup 14853 1 [anon_sym_POUND];
     AGroup 14859 1 [aux_sym_ppUsesBlock_token1]; AGroup 15357 1 [anon_sym_LPAREN];
     AGroup 15359 1 [sym_kHat]; AGroup 15361 1 [sym_ppFragmentExpr];
     AGroup 15363 1 [sym_identifier]; AGroup 15365 1 [sym_kSpecialize];
     AGroup 15367 1 [sym_kReference]; AGroup 15369 1 [sym_kArray]; AGroup 15371 1 [sym_kClass];
     AGroup 15375 1 [sym_kFile]; AGroup 15379 1 [sym_kPacked]; AGroup 15381 1 [sym_kRecord];
     AGroup 15383 1 [sym_kSet]; AGroup 15385 1 [sym_kString]; SGroup 3813 1 [sym__ppIf];
     SGroup 10605 1 [sym__subRangeUnary]; SGroup 10614 1 [sym__subRangeBinary];
     SGroup 10620 1 [sym__subRangeCall]; SGroup 11010 1 [sym_type]; AGroup 3 2 syms_5;
     AGroup 14851 2 syms_6; AGroup 14855 2 syms_7; AGroup 14857 2 syms_8; AGroup 14861 2 syms_9;
     AGroup 15377 2 syms_11; SGroup 10647 2 syms_12; SGroup 10482 3 syms_13;
     SGroup 11272 3 syms_30; SGroup 10358 4 syms_31; SGroup 11091 10 syms_32]);
   (47481, 32, [AGroup 5 1 [sym_ppDirective]; AGroup 14853 1 [anon_sym_POUND];
     AGroup 14859 1 [aux_sym_ppUsesBlock_token1]; AGroup 15357 1 [anon_sym_LPAREN];
     AGroup 15359 1 [sym_kHat]; AGroup 15361 1 [sym_ppFragmentExpr];
     AGroup 15363 1 [sym_identifier]; AGroup 15365 1 [sym_kSpecialize];
     AGroup 15367 1 [sym_kReference]; AGroup 15369 1 [sym_kArray]; AGroup 15371 1 [sym_kClass];
     AGroup 15375 1 [sym_kFile]; AGroup 15379 1 [sym_kPacked]; AGroup 15381 1 [sym_kRecord];
     AGroup 15383 1 [sym_kSet]; AGroup 15385 1 [sym_kString]; SGroup 3813 1 [sym__ppIf];
     SGroup 10605 1 [sym__subRangeUnary]; SGroup 10614 1 [sym__subRangeBinary];
     SGroup 10620 1 [sym__subRangeCall]; SGroup 11035 1 [sym_type]; AGroup 3 2 syms_5;
     AGroup 14851 2 syms_6; AGroup 14855 2 syms_7; AGroup 14857 2 syms_8; AGroup 14861 2 syms_9;
     AGroup 15377 2 syms_11; SGroup 10647 2 syms_12; SGroup 10482 3 syms_13;
     SGroup 11272 3 syms_30; SGroup 10358 4 syms_31; SGroup 11091 10 syms_32]);
   (47601, 32, [AGroup 5 1 [sym_ppDirective]; AGroup 14849 1 [anon_sym_LPAREN];
     AGroup 14853 1 [anon_sym_POUND]; AGroup 14859 1 [aux_sym_ppUsesBlock_token1];
     AGroup 14863 1 [sym_kHat]; AGroup 14865 1 [sym_ppFragmentExpr];
     AGroup 14867 1 [sym_identifier]; AGroup 14871 1 [sym_kSpecialize];
     AGroup 14873 1 [sym_kReference]; AGroup 14875 1 [sym_kArray]; AGroup 14881 1 [sym_kFile];
     AGroup 14889 1 [sym_kSet]; AGroup 14891 1 [sym_kString]; AGroup 15387 1 [sym_kClass];
     AGroup 15391 1 [sym_kPacked]; AGroup 15393 1 [sym_kRecord]; SGroup 3870 1 [sym__ppIf];
     SGroup 10605 1 [sym__subRangeUnary]; SGroup 10614 1 [sym__subRangeBinary];
     SGroup 10620 1 [sym__subRangeCall]; SGroup 12960 1 [sym_type]; AGroup 3 2 syms_5;
     AGroup 14851 2 syms_6; AGroup 14855 2 syms_7; AGroup 14857 2 syms_8; AGroup 14861 2 syms_9;
     AGroup 14883 2 syms_11; SGroup 10647 2 syms_12; SGroup 10482 3 syms_13;
     SGroup 11313 3 syms_30; SGroup 10505 4 syms_31; SGroup 12384 10 syms_32]);
   (47721, 32, [AGroup 5 1 [sym_ppDirective]; AGroup 14849 1 [anon_sym_LPAREN];
     AGroup 14853 1 [anon_sym_POUND]; AGroup 14859 1 [aux_sym_ppUsesBlock_token1];
     AGroup 14863 1 [sym_kHat]; AGroup 14865 1 [sym_ppFragmentExpr];
     AGroup 14867 1 [sym_identifier]; AGroup 14871 1 [sym_kSpecialize];
     AGroup 14873 1 [sym_kReference]; AGroup 14875 1 [sym_kArray]; AGroup 14881 1 [sym_kFile];
     AGroup 14889 1 [sym_kSet]; AGroup 14891 1 [sym_kString]; AGroup 15387 1 [sym_kClass];
     AGroup 15391 1 [sym_kPacked]; AGroup 15393 1 [sym_kRecord]; SGroup 3870 1 [sym__ppIf];
     SGroup 10605 1 [sym__subRangeUnary]; SGroup 10614 1 [sym__subRangeBinary];
     SGroup 10620 1 [sym__subRangeCall]; SGroup 12464 1 [sym_type]; AGroup 3 2 syms_5;
     AGroup 14851 2 syms_6; AGroup 14855 2 syms_7; AGroup 14857 2 syms_8; AGroup 14861 2 syms_9;
     AGroup 14883 2 syms_11; SGroup 10647 2 syms_12; SGroup 10482 3 syms_13;
     SGroup 11313 3 syms_30; SGroup 10505 4 syms_31; SGroup 12384 10 syms_32]);
   (47841, 5, [AGroup 5 1 [sym_ppDirective]; AGroup 3 2 syms_5; AGroup 15492 7 syms_34;
     AGroup 15403 18 syms_36; AGroup 15490 27 syms_72]);
   (47907, 32, [AGroup 5 1 [sym_ppDirective]; AGroup 14853 1 [anon_sym_POUND];
     AGroup 14859 1 [aux_sym_ppUsesBlock_token1]; AGroup 15357 1 [anon_sym_LPAREN];
     AGroup 15359 1 [sym_kHat]; AGroup 15361 1 [sym_ppFragmentExpr];
     AGroup 15363 1 [sym_identifier]; AGroup 15365 1 [sym_kSpecialize];
     AGroup 15367 1 [sym_kReference]; AGroup 15369 1 [sym_kArray]; AGroup 15371 1 [sym_kClass];
     AGroup 15375 1 [sym_kFile]; AGroup 15379 1 [sym_kPacked]; AGroup 15381 1 [sym_kRecord];
     AGroup 15383 1 [sym_kSet]; AGroup 15385 1 [sym_kString]; SGroup 3813 1 [sym__ppIf];
     SGroup 10605 1 [sym__subRangeUnary]; SGroup 10614 1 [sym__subRangeBinary];
     SGroup 10620 1 [sym__subRangeCall]; SGroup 10920 1 [sym_type]; AGroup 3 2 syms_5;
     AGroup 14851 2 syms_6; AGroup 14855 2 syms_7; AGroup 14857 2 syms_8; AGroup 14861 2 syms_9;
     AGroup 15377 2 syms_11; SGroup 10647 2 syms_12; SGroup 10482 3 syms_13;
     SGroup 11272 3 syms_30; SGroup 10358 4 syms_31; SGroup 11091 10 syms_32]);
   (48027, 32, [AGroup 5 1 [sym_ppDirective]; AGroup 14853 1 [anon_sym_POUND];
     AGroup 14859 1 [aux_sym_ppUsesBlock_token1]; AGroup 15357 1 [anon_sym_LPAREN];
     AGroup 15359 1 [sym_kHat]; AGroup 15361 1 [sym_ppFragmentExpr];
     AGroup 15363 1 [sym_identifier]; AGroup 15365 1 [sym_kSpecialize];
     AGroup 15367 1 [sym_kReference]; AGroup 15369 1 [sym_kArray]; AGroup 15371 1 [sym_kClass];
     AGroup 15375 1 [sym_kFile]; AGroup 15379 1 [sym_kPacked]; AGroup 15381 1 [sym_kRecord];
     AGroup 15383 1 [sym_kSet]; AGroup 15385 1 [sym_kString]; SGroup 3813 1 [sym__ppIf];
     SGroup 10605 1 [sym__subRangeUnary]; SGroup 10614 1 [sym__subRangeBinary];
     SGroup 10620 1 [sym__subRangeCall]; SGroup 10989 1 [sym_type]; AGroup 3 2 syms_5;
     AGroup 14851 2 syms_6; AGroup 14855 2 syms_7; AGroup 14857 2 syms_8; AGroup 14861 2 syms_9;
     AGroup 15377 2 syms_11; SGroup 10647 2 syms_12; SGroup 10482 3 syms_13;
     SGroup 11272 3 syms_30; SGroup 10358 4 syms_31; SGroup 11091 10 syms_32]);
   (48147, 32, [AGroup 5 1 [sym_ppDirective]; AGroup 14849 1 [anon_sym_LPAREN];
     AGroup 14853 1 [anon_sym_POUND]; AGroup 14859 1 [aux_sym_ppUsesBlock_token1];
     AGroup 14863 1 [sym_kHat]; AGroup 14865 1 [sym_ppFragmentExpr];
     AGroup 14867 1 [sym_identifier]; AGroup 14871 1 [sym_kSpecialize];
     AGroup 14873 1 [sym_kReference]; AGroup 14875 1 [sym_kArray]; AGroup 14881 1 [sym_kFile];
     AGroup 14889 1 [sym_kSet]; AGroup 14891 1 [sym_kString]; AGroup 15387 1 [sym_kClass];
     AGroup 15391 1 [sym_kPacked]; AGroup 15393 1 [sym_kRecord]; SGroup 3870 1 [sym__ppIf];
     SGroup 10605 1 [sym__subRangeUnary]; SGroup 10614 1 [sym__subRangeBinary];
     SGroup 10620 1 [sym__subRangeCall]; SGroup 12489 1 [sym_type]; AGroup 3 2 syms_5;
     AGroup 14851 2 syms_6; AGroup 14855 2 syms_7; AGroup 14857 2 syms_8; AGroup 14861 2 syms_9;
     AGroup 14883 2 syms_11; SGroup 10647 2 syms_12; SGroup 10482 3 syms_13;
     SGroup 11313 3 syms_30; SGroup 10505 4 syms_31; SGroup 12384 10 syms_32]);
   (48267, 32, [AGroup 5 1 [sym_ppDirective]; AGroup 14853 1 [anon_sym_POUND];
     AGroup 14859 1 [aux_sym_ppUsesBlock_token1]; AGroup 15357 1 [anon_sym_LPAREN];
     AGroup 15359 1 [sym_kHat]; AGroup 15361 1 [sym_ppFragmentExpr];
     AGroup 15363 1 [sym_identifier]; AGroup 15365 1 [sym_kSpecialize];
     AGroup 15367 1 [sym_kReference]; AGroup 15369 1 [sym_kArray]; AGroup 15371 1 [sym_kClass];
     AGroup 15375 1 [sym_kFile]; AGroup 15379 1 [sym_kPacked]; AGroup 15381 1 [sym_kRecord];
     AGroup 15383 1 [sym_kSet]; AGroup 15385 1 [sym_kString]; SGroup 3813 1 [sym__ppIf];
     SGroup 10605 1 [sym__subRangeUnary]; SGroup 10614 1 [sym__subRangeBinary];
     SGroup 10620 1 [sym__subRangeCall]; SGroup 10817 1 [sym_type]; AGroup 3 2 syms_5;
     AGroup 14851 2 syms_6; AGroup 14855 2 syms_7; AGroup 14857 2 syms_8; AGroup 14861 2 syms_9;
     AGroup 15377 2 syms_11; SGroup 10647 2 syms_12; SGroup 10482 3 syms_13;
     SGroup 11272 3 syms_30; SGroup 10358 4 syms_31; SGroup 11091 10 syms_32]);
   (48387, 32, [AGroup 5 1 [sym_ppDirective]; AGroup 14849 1 [anon_sym_LPAREN];
     AGroup 14853 1 [anon_sym_POUND]; AGroup 14859 1 [aux_sym_ppUsesBlock_token1];
     AGroup 14863 1 [sym_kHat]; AGroup 14865 1 [sym_ppFragmentExpr];
     AGroup 14867 1 [sym_identifier]; AGroup 14871 1 [sym_kSpecialize];
     AGroup 14873 1 [sym_kReference]; AGroup 14875 1 [sym_kArray]; AGroup 14881 1 [sym_kFile];
     AGroup 14889 1 [sym_kSet]; AGroup 14891 1 [sym_kString]; AGroup 15387 1 [sym_kClass];
     AGroup 15391 1 [sym_kPacked]; AGroup 15393 1 [sym_kRecord]; SGroup 3870 1 [sym__ppIf];
     SGroup 10605 1 [sym__subRangeUnary]; SGroup 10614 1 [sym__subRangeBinary];
     SGroup 10620 1 [sym__subRangeCall]; SGroup 12710 1 [sym_type]; AGroup 3 2 syms_5;
     AGroup 14851 2 syms_6; AGroup 14855 2 syms_7; AGroup 14857 2 syms_8; AGroup 14861 2 syms_9;
     AGroup 14883 2 syms_11; SGroup 10647 2 syms_12; SGroup 10482 3 syms_13;
     SGroup 11313 3 syms_30; SGroup 10505 4 syms_31; SGroup 12384 10 syms_32]);
   (48507, 32, [AGroup 5 1 [sym_ppDirective]; AGroup 14853 1 [anon_sym_POUND];
     AGroup 14859 1 [aux_sym_ppUsesBlock_token1]; AGroup 15405 1 [anon_sym_LPAREN];
     AGroup 15407 1 [sym_kHat]; AGroup 15409 1 [sym_ppFragmentExpr];
     AGroup 15411 1 [sym_identifier]; AGroup 15413 1 [sym_kSpecialize];
     AGroup 15415 1 [sym_kReference]; AGroup 15417 1 [sym_kArray]; AGroup 15419 1 [sym_kClass];
     AGroup 15423 1 [sym_kFile]; AGroup 15427 1 [sym_kPacked]; AGroup 15429 1 [sym_kRecord];
     AGroup 15431 1 [sym_kSet]; AGroup 15433 1 [sym_kString]; SGroup 3836 1 [sym__ppIf];
     SGroup 10605 1 [sym__subRangeUnary]; SGroup 10614 1 [sym__subRangeBinary];
     SGroup 10620 1 [sym__subRangeCall]; SGroup 12447 1 [sym_type]; AGroup 3 2 syms_5;
     AGroup 14851 2 syms_6; AGroup 14855 2 syms_7; AGroup 14857 2 syms_8; AGroup 14861 2 syms_9;
     AGroup 15425 2 syms_11; SGroup 10647 2 syms_12; SGroup 10482 3 syms_13;
     SGroup 11244 3 syms_30; SGroup 10538 4 syms_31; SGroup 12943 10 syms_32]);
   (48627, 32, [AGroup 5 1 [sym_ppDirective]; AGroup 14853 1 [anon_sym_POUND];
     AGroup 14859 1 [aux_sym_ppUsesBlock_token1]; AGroup 15405 1 [anon_sym_LPAREN];
     AGroup 15407 1 [sym_kHat]; AGroup 15409 1 [sym_ppFragmentExpr];
     AGroup 15411 1 [sym_identifier]; AGroup 15413 1 [sym_kSpecialize];
     AGroup 15415 1 [sym_kReference]; AGroup 15417 1 [sym_kArray]; AGroup 15419 1 [sym_kClass];
     AGroup 15423 1 [sym_kFile]; AGroup 15427 1 [sym_kPacked]; AGroup 15429 1 [sym_kRecord];
     AGroup 15431 1 [sym_kSet]; AGroup 15433 1 [sym_kString]; SGroup 3836 1 [sym__ppIf];
     SGroup 10605 1 [sym__subRangeUnary]; SGroup 10614 1 [sym__subRangeBinary];
     SGroup 10620 1 [sym__subRangeCall]; SGroup 12448 1 [sym_type]; AGroup 3 2 syms_5;
     AGroup 14851 2 syms_6; AGroup 14855 2 syms_7; AGroup 14857 2 syms_8; AGroup 14861 2 syms_9;
     AGroup 15425 2 syms_11; SGroup 10647 2 syms_12; SGroup 10482 3 syms_13;
     SGroup 11244 3 syms_30; SGroup 10538 4 syms_31; SGroup 12943 10 syms_32]);
   (48747, 32, [AGroup 5 1 [sym_ppDirective]; AGroup 14849 1 [anon_sym_LPAREN];
     AGroup 14853 1 [anon_sym_POUND]; AGroup 14859 1 [aux_sym_ppUsesBlock_token1];
     AGroup 14863 1 [sym_kHat]; AGroup 14865 1 [sym_ppFragmentExpr];
     AGroup 14867 1 [sym_identifier]; AGroup 14871 1 [sym_kSpecialize];
     AGroup 14873 1 [sym_kReference]; AGroup 14875 1 [sym_kArray]; AGroup 14881 1 [sym_kFile];
     AGroup 14889 1 [sym_kSet]; AGroup 14891 1 [sym_kString]; AGroup 15387 1 [sym_kClass];
     AGroup 15391 1 [sym_kPacked]; AGroup 15393 1 [sym_kRecord]; SGroup 3870 1 [sym__ppIf];
     SGroup 10605 1 [sym__subRangeUnary]; SGroup 10614 1 [sym__subRangeBinary];
     SGroup 10620 1 [sym__subRangeCall]; SGroup 12766 1 [sym_type]; AGroup 3 2 syms_5;
     AGroup 14851 2 syms_6; AGroup 14855 2 syms_7; AGroup 14857 2 syms_8; AGroup 14861 2 syms_9;
     AGroup 14883 2 syms_11; SGroup 10647 2 syms_12; SGroup 10482 3 syms_13;
     SGroup 11313 3 syms_30; SGroup 10505 4 syms_31; SGroup 12384 10 syms_32]);
   (48867, 32, [AGroup 5 1 [sym_ppDirective]; AGroup 14849 1 [anon_sym_LPAREN];
     AGroup 14853 1 [anon_sym_POUND]; AGroup 14859 1 [aux_sym_ppUsesBlock_token1];
     AGroup 14863 1 [sym_kHat]; AGroup 14865 1 [sym_ppFragmentExpr];
     AGroup 14867 1 [sym_identifier]; AGroup 14871 1 [sym_kSpecialize];
     AGroup 14873 1 [sym_kReference]; AGroup 14875 1 [sym_kArray]; AGroup 14881 1 [sym_kFile];
     AGroup 14889 1 [sym_kSet]; AGroup 14891 1 [sym_kString]; AGroup 15387 1 [sym_kClass];
     AGroup 15391 1 [sym_kPacked]; AGroup 15393 1 [sym_kRecord]; SGroup 3870 1 [sym__ppIf];
     SGroup 10605 1 [sym__subRangeUnary]; SGroup 10614 1 [sym__subRangeBinary];
     SGroup 10620 1 [sym__subRangeCall]; SGroup 12795 1 [sym_type]; AGroup 3 2 syms_5;
     AGroup 14851 2 syms_6; AGroup 14855 2 syms_7; AGroup 14857 2 syms_8; AGroup 14861 2 syms_9;
     AGroup 14883 2 syms_11; SGroup 10647 2 syms_12; SGroup 10482 3 syms_13;
     SGroup 11313 3 syms_30; SGroup 10505 4 syms_31; SGroup 12384 10 syms_32]);
   (48987, 32, [AGroup 5 1 [sym_ppDirective]; AGroup 14849 1 [anon_sym_LPAREN];
     AGroup 14853 1 [anon_sym_POUND]; AGroup 14859 1 [aux_sym_ppUsesBlock_token1];
     AGroup 14863 1 [sym_kHat]; AGroup 14865 1 [sym_ppFragmentExpr];
     AGroup 14867 1 [sym_identifier]; AGroup 14871 1 [sym_kSpecialize];
     AGroup 14873 1 [sym_kReference]; AGroup 14875 1 [sym_kArray]; AGroup 14881 1 [sym_kFile];
     AGroup 14889 1 [sym_kSet]; AGroup 14891 1 [sym_kString]; AGroup 15387 1 [sym_kClass];
     AGroup 15391 1 [sym_kPacked]; AGroup 15393 1 [sym_kRecord]; SGroup 3870 1 [sym__ppIf];
     SGroup 10605 1 [sym__subRangeUnary]; SGroup 10614 1 [sym__subRangeBinary];
     SGroup 10620 1 [sym__subRangeCall]; SGroup 13490 1 [sym_type]; AGroup 3 2 syms_5;
     AGroup 14851 2 syms_6; AGroup 14855 2 syms_7; AGroup 14857 2 syms_8; AGroup 14861 2 syms_9;
     AGroup 14883 2 syms_11; SGroup 10647 2 syms_12; SGroup 10482 3 syms_13;
     SGroup 11313 3 syms_30; SGroup 10505 4 syms_31; SGroup 12384 10 syms_32]);
   (49107, 32, [AGroup 5 1 [sym_ppDirective]; AGroup 14849 1 [anon_sym_LPAREN];
     AGroup 14853 1 [anon_sym_POUND]; AGroup 14859 1 [aux_sym_ppUsesBlock_token1];
     AGroup 14863 1 [sym_kHat]; AGroup 14865 1 [sym_ppFragmentExpr];
     AGroup 14867 1 [sym_identifier]; AGroup 14871 1 [sym_kSpecialize];
     AGroup 14873 1 [sym_kReference]; AGroup 14875 1 [sym_kArray]; AGroup 14881 1 [sym_kFile];
     AGroup 14889 1 [sym_kSet]; AGroup 14891 1 [sym_kString]; AGroup 15387 1 [sym_kClass];
     AGroup 15391 1 [sym_kPacked]; AGroup 15393 1 [sym_kRecord]; SGroup 3870 1 [sym__ppIf];
     SGroup 10605 1 [sym__subRangeUnary]; SGroup 10614 1 [sym__subRangeBinary];
     SGroup 10620 1 [sym__subRangeCall]; SGroup 12817 1 [sym_type]; AGroup 3 2 syms_5;
     AGroup 14851 2 syms_6; AGroup 14855 2 syms_7; AGroup 14857 2 syms_8; AGroup 14861 2 syms_9;
     AGroup 14883 2 syms_11; SGroup 10647 2 syms_12; SGroup 10482 3 syms_13;
     SGroup 11313 3 syms_30; SGroup 10505 4 syms_31; SGroup 12384 10 syms_32]);
   (49227, 32, [AGroup 5 1 [sym_ppDirective]; AGroup 14853 1 [anon_sym_POUND];
     AGroup 14859 1 [aux_sym_ppUsesBlock_token1]; AGroup 15405 1 [anon_sym_LPAREN];
     AGroup 15407 1 [sym_kHat]; AGroup 15409 1 [sym_ppFragmentExpr];
     AGroup 15411 1 [sym_identifier]; AGroup 15413 1 [sym_kSpecialize];
     AGroup 15415 1 [sym_kReference]; AGroup 15417 1 [sym_kArray]; AGroup 15419 1 [sym_kClass];
     AGroup 15423 1 [sym_kFile]; AGroup 15427 1 [sym_kPacked]; AGroup 15429 1 [sym_kRecord];
     AGroup 15431 1 [sym_kSet]; AGroup 15433 1 [sym_kString]; SGroup 3836 1 [sym__ppIf];
     SGroup 10605 1 [sym__subRangeUnary]; SGroup 10614 1 [sym__subRangeBinary];
     SGroup 10620 1 [sym__subRangeCall]; SGroup 12266 1 [sym_type]; AGroup 3 2 syms_5;
     AGroup 14851 2 syms_6; AGroup 14855 2 syms_7; AGroup 14857 2 syms_8; AGroup 14861 2 syms_9;
     AGroup 15425 2 syms_11; SGroup 10647 2 syms_12; SGroup 10482 3 syms_13;
     SGroup 11244 3 syms_30; SGroup 10538 4 syms_31; SGroup 12943 10 syms_32]);
   (49347, 32, [AGroup 5 1 [sym_ppDirective]; AGroup 14853 1 [anon_sym_POUND];
     AGroup 14859 1 [aux_sym_ppUsesBlock_token1]; AGroup 15405 1 [anon_sym_LPAREN];
     AGroup 15407 1 [sym_kHat]; AGroup 15409 1 [sym_ppFragmentExpr];
     AGroup 15411 1 [sym_identifier]; AGroup 15413 1 [sym_kSpecialize];
     AGroup 15415 1 [sym_kReference]; AGroup 15417 1 [sym_kArray]; AGroup 15419 1 [sym_kClass];
     AGroup 15423 1 [sym_kFile]; AGroup 15427 1 [sym_kPacked]; AGroup 15429 1 [sym_kRecord];
     AGroup 15431 1 [sym_kSet]; AGroup 15433 1 [sym_kString]; SGroup 3836 1 [sym__ppIf];
     SGroup 10605 1 [sym__subRangeUnary]; SGroup 10614 1 [sym__subRangeBinary];
     SGroup 10620 1 [sym__subRangeCall]; SGroup 12280 1 [sym_type]; AGroup 3 2 syms_5;
     AGroup 14851 2 syms_6; AGroup 14855 2 syms_7; AGroup 14857 2 syms_8; AGroup 14861 2 syms_9;
     AGroup 15425 2 syms_11; SGroup 10647 2 syms_12; SGroup 10482 3 syms_13;
     SGroup 11244 3 syms_30; SGroup 10538 4 syms_31; SGroup 12943 10 syms_32]);
   (49467, 32, [AGroup 5 1 [sym_ppDirective]; AGroup 14853 1 [anon_sym_POUND];
     AGroup 14859 1 [aux_sym_ppUsesBlock_token1]; AGroup 15405 1 [anon_sym_LPAREN];
     AGroup 15407 1 [sym_kHat]; AGroup 15409 1 [sym_ppFragmentExpr];
     AGroup 15411 1 [sym_identifier]; AGroup 15413 1 [sym_kSpecialize];
     AGroup 15415 1 [sym_kReference]; AGroup 15417 1 [sym_kArray]; AGroup 15419 1 [sym_kClass];
     AGroup 15423 1 [sym_kFile]; AGroup 15427 1 [sym_kPacked]; AGroup 15429 1 [sym_kRecord];
     AGroup 15431 1 [sym_kSet]; AGroup 15433 1 [sym_kString]; SGroup 3836 1 [sym__ppIf];
     SGroup 10605 1 [sym__subRangeUnary]; SGroup 10614 1 [sym__subRangeBinary];
     SGroup 10620 1 [sym__subRangeCall]; SGroup 12318 1 [sym_type]; AGroup 3 2 syms_5;
     AGroup 14851 2 syms_6; AGroup 14855 2 syms_7; AGroup 14857 2 syms_8; AGroup 14861 2 syms_9;
     AGroup 15425 2 syms_11; SGroup 10647 2 syms_12; SGroup 10482 3 syms_13;
     SGroup 11244 3 syms_30; SGroup 10538 4 syms_31; SGroup 12943 10 syms_32]);
   (49587, 32, [AGroup 5 1 [sym_ppDirective]; AGroup 14853 1 [anon_sym_POUND];
     AGroup 14859 1 [aux_sym_ppUsesBlock_token1]; AGroup 15405 1 [anon_sym_LPAREN];
     AGroup 15407 1 [sym_kHat]; AGroup 15409 1 [sym_ppFragmentExpr];
     AGroup 15411 1 [sym_identifier]; AGroup 15413 1 [sym_kSpecialize];
     AGroup 15415 1 [sym_kReference]; AGroup 15417 1 [sym_kArray]; AGroup 15419 1 [sym_kClass];
     AGroup 15423 1 [sym_kFile]; AGroup 15427 1 [sym_kPacked]; AGroup 15429 1 [sym_kRecord];
     AGroup 15431 1 [sym_kSet]; AGroup 15433 1 [sym_kString]; SGroup 3836 1 [sym__ppIf];
     SGroup 10605 1 [sym__subRangeUnary]; SGroup 10614 1 [sym__subRangeBinary];
     SGroup 10620 1 [sym__subRangeCall]; SGroup 12340 1 [sym_type]; AGroup 3 2 syms_5;
     AGroup 14851 2 syms_6; AGroup 14855 2 syms_7; AGroup 14857 2 syms_8; AGroup 14861 2 syms_9;
     AGroup 15425 2 syms_11; SGroup 10647 2 syms_12; SGroup 10482 3 syms_13;
     SGroup 11244 3 syms_30; SGroup 10538 4 syms_31; SGroup 12943 10 syms_32]);
   (49707, 5, [AGroup 5 1 [sym_ppDirective]; AGroup 3 2 syms_5; AGroup 15401 7 syms_34;
     AGroup 15403 18 syms_36; AGroup 15399 27 syms_72]);
   (49773, 32, [AGroup 5 1 [sym_ppDirective]; AGroup 14849 1 [anon_sym_LPAREN];
     AGroup 14853 1 [anon_sym_POUND]; AGroup 14859 1 [aux_sym_ppUsesBlock_token1];
     AGroup 14863 1 [sym_kHat]; AGroup 14865 1 [sym_ppFragmentExpr];
     AGroup 14867 1 [sym_identifier]; AGroup 14871 1 [sym_kSpecialize];
     AGroup 14873 1 [sym_kReference]; AGroup 14875 1 [sym_kArray]; AGroup 14881 1 [sym_kFile];
     AGroup 14889 1 [sym_kSet]; AGroup 14891 1 [sym_kString]; AGroup 15387 1 [sym_kClass];
     AGroup 15391 1 [sym_kPacked]; AGroup 15393 1 [sym_kRecord]; SGroup 3870 1 [sym__ppIf];
     SGroup 10605 1 [sym__subRangeUnary]; SGroup 10614 1 [sym__subRangeBinary];
     SGroup 10620 1 [sym__subRangeCall]; SGroup 11937 1 [sym_type]; AGroup 3 2 syms_5;
     AGroup 14851 2 syms_6; AGroup 14855 2 syms_7; AGroup 14857 2 syms_8; AGroup 14861 2 syms_9;
     AGroup 14883 2 syms_11; SGroup 10647 2 syms_12; SGroup 10482 3 syms_13;
     SGroup 11313 3 syms_30; SGroup 10505 4 syms_31; SGroup 12384 10 syms_32]);
   (49893, 32, [AGroup 5 1 [sym_ppDirective]; AGroup 14853 1 [anon_sym_POUND];
     AGroup 14859 1 [aux_sym_ppUsesBlock_token1]; AGroup 15357 1 [anon_sym_LPAREN];
     AGroup 15359 1 [sym_kHat]; AGroup 15361 1 [sym_ppFragmentExpr];
     AGroup 15363 1 [sym_identifier]; AGroup 15365 1 [sym_kSpecialize];
     AGroup 15367 1 [sym_kReference]; AGroup 15369 1 [sym_kArray]; AGroup 15371 1 [sym_kClass];
     AGroup 15375 1 [sym_kFile]; AGroup 15379 1 [sym_kPacked]; AGroup 15381 1 [sym_kRecord];
     AGroup 15383 1 [sym_kSet]; AGroup 15385 1 [sym_kString]; SGroup 3813 1 [sym__ppIf];
     SGroup 10605 1 [sym__subRangeUnary]; SGroup 10614 1 [sym__subRangeBinary];
     SGroup 10620 1 [sym__subRangeCall]; SGroup 11022 1 [sym_type]; AGroup 3 2 syms_5;
     AGroup 14851 2 syms_6; AGroup 14855 2 syms_7; AGroup 14857 2 syms_8; AGroup 14861 2 syms_9;
     AGroup 15377 2 syms_11; SGroup 10647 2 syms_12; SGroup 10482 3 syms_13;
     SGroup 11272 3 syms_30; SGroup 10358 4 syms_31; SGroup 11091 10 syms_32]);
   (50013, 24, [AGroup 5 1 [sym_ppDirective]; AGroup 15647 1 [anon_sym_LBRACK];
     AGroup 15649 1 [anon_sym_LPAREN]; AGroup 15653 1 [anon_sym_POUND];
     AGroup 15665 1 [sym_identifier]; AGroup 15667 1 [sym_kSpecialize];
     AGroup 15673 1 [sym_kInherited]; AGroup 15675 1 [sym_kString]; AGroup 15755 1 [sym_kIf];
     SGroup 3350 1 [aux_sym_recInitializer_repeat1]; SGroup 13725 1 [sym_recInitializerField];
     AGroup 3 2 syms_5; AGroup 15651 2 syms_6; AGroup 15655 2 syms_7; AGroup 15657 2 syms_8;
     AGroup 15669 2 syms_11; AGroup 15747 2 syms_9; AGroup 15749 2 syms_10;
     SGroup 8129 2 syms_12; SGroup 7100 3 syms_13; SGroup 13515 3 syms_56;
     AGroup 15751 4 syms_57; SGroup 9426 4 syms_14; SGroup 8464 14 syms_17]);
   (50117, 32, [AGroup 5 1 [sym_ppDirective]; AGroup 14849 1 [anon_sym_LPAREN];
     AGroup 14853 1 [anon_sym_POUND]; AGroup 14859 1 [aux_sym_ppUsesBlock_token1];
     AGroup 14863 1 [sym_kHat]; AGroup 14865 1 [sym_ppFragmentExpr];
     AGroup 14867 1 [sym_identifier]; AGroup 14871 1 [sym_kSpecialize];
     AGroup 14873 1 [sym_kReference]; AGroup 14875 1 [sym_kArray]; AGroup 14881 1 [sym_kFile];
     AGroup 14889 1 [sym_kSet]; AGroup 14891 1 [sym_kString]; AGroup 15387 1 [sym_kClass];
     AGroup 15391 1 [sym_kPacked]; AGroup 15393 1 [sym_kRecord]; SGroup 3870 1 [sym__ppIf];
     SGroup 10605 1 [sym__subRangeUnary]; SGroup 10614 1 [sym__subRangeBinary];
     SGroup 10620 1 [sym__subRangeCall]; SGroup 12884 1 [sym_type]; AGroup 3 2 syms_5;
     AGroup 14851 2 syms_6; AGroup 14855 2 syms_7; AGroup 14857 2 syms_8; AGroup 14861 2 syms_9;
     AGroup 14883 2 syms_11; SGroup 10647 2 syms_12; SGroup 10482 3 syms_13;
     SGroup 11313 3 syms_30; SGroup 10505 4 syms_31; SGroup 12384 10 syms_32]);
   (50237, 32, [AGroup 5 1 [sym_ppDirective]; AGroup 14849 1 [anon_sym_LPAREN];
     AGroup 14853 1 [anon_sym_POUND]; AGroup 14859 1 [aux_sym_ppUsesBlock_token1];
     AGroup 14863 1 [sym_kHat]; AGroup 14865 1 [sym_ppFragmentExpr];
     AGroup 14867 1 [sym_identifier]; AGroup 14871 1 [sym_kSpecialize];
     AGroup 14873 1 [sym_kReference]; AGroup 14875 1 [sym_kArray]; AGroup 14881 1 [sym_kFile];
     AGroup 14889 1 [sym_kSet]; AGroup 14891 1 [sym_kString]; AGroup 15387 1 [sym_kClass];
     AGroup 15391 1 [sym_kPacked]; AGroup 15393 1 [sym_kRecord]; SGroup 3870 1 [sym__ppIf];
     SGroup 10605 1 [sym__subRangeUnary]; SGroup 10614 1 [sym__subRangeBinary];
     SGroup 10620 1 [sym__subRangeCall]; SGroup 12891 1 [sym_type]; AGroup 3 2 syms_5;
     AGroup 14851 2 syms_6; AGroup 14855 2 syms_7; AGroup 14857 2 syms_8; AGroup 14861 2 syms_9;
     AGroup 14883 2 syms_11; SGroup 10647 2 syms_12; SGroup 10482 3 syms_13;
     SGroup 11313 3 syms_30; SGroup 10505 4 syms_31; SGroup 12384 10 syms_32]);
   (50357, 32, [AGroup 5 1 [sym_ppDirective]; AGroup 14849 1 [anon_sym_LPAREN];
     AGroup 14853 1 [anon_sym_POUND]; AGroup 14859 1 [aux_sym_ppUsesBlock_token1];
     AGroup 14863 1 [sym_kHat]; AGroup 14865 1 [sym_ppFragmentExpr];
     AGroup 14867 1 [sym_identifier]; AGroup 14871 1 [sym_kSpecialize];
     AGroup 14873 1 [sym_kReference]; AGroup 14875 1 [sym_kArray]; AGroup 14881 1 [sym_kFile];
     AGroup 14889 1 [sym_kSet]; AGroup 14891 1 [sym_kString]; AGroup 15387 1 [sym_kClass];
     AGroup 15391 1 [sym_kPacked]; AGroup 15393 1 [sym_kRecord]; SGroup 3870 1 [sym__ppIf];
     SGroup 10605 1 [sym__subRangeUnary]; SGroup 10614 1 [sym__subRangeBinary];
     SGroup 10620 1 [sym__subRangeCall]; SGroup 12895 1 [sym_type]; AGroup 3 2 syms_5;
     AGroup 14851 2 syms_6; AGroup 14855 2 syms_7; AGroup 14857 2 syms_8; AGroup 14861 2 syms_9;
     AGroup 14883 2 syms_11; SGroup 10647 2 syms_12; SGroup 10482 3 syms_13;
     SGroup 11313 3 syms_30; SGroup 10505 4 syms_31; SGroup 12384 10 syms_32]);
   (50477, 32, [AGroup 5 1 [sym_ppDirective]; AGroup 14853 1 [anon_sym_POUND];
     AGroup 14859 1 [aux_sym_ppUsesBlock_token1]; AGroup 15405 1 [anon_sym_LPAREN];
     AGroup 15407 1 [sym_kHat]; AGroup 15409 1 [sym_ppFragmentExpr];
     AGroup 15411 1 [sym_identifier]; AGroup 15413 1 [sym_kSpecialize];
     AGroup 15415 1 [sym_kReference]; AGroup 15417 1 [sym_kArray]; AGroup 15419 1 [sym_kClass];
     AGroup 15423 1 [sym_kFile]; AGroup 15427 1 [sym_kPacked]; AGroup 15429 1 [sym_kRecord];
     AGroup 15431 1 [sym_kSet]; AGroup 15433 1 [sym_kString]; SGroup 3836 1 [sym__ppIf];
     SGroup 10605 1 [sym__subRangeUnary]; SGroup 10614 1 [sym__subRangeBinary];
     SGroup 10620 1 [sym__subRangeCall]; SGroup 12064 1 [sym_type]; AGroup 3 2 syms_5;
     AGroup 14851 2 syms_6; AGroup 14855 2 syms_7; AGroup 14857 2 syms_8; AGroup 14861 2 syms_9;
     AGroup 15425 2 syms_11; SGroup 10647 2 syms_12; SGroup 10482 3 syms_13;
     SGroup 11244 3 syms_30; SGroup 10538 4 syms_31; SGroup 12943 10 syms_32]);
   (50597, 32, [AGroup 5 1 [sym_ppDirective]; AGroup 14853 1 [anon_sym_POUND];
     AGroup 14859 1 [aux_sym_ppUsesBlock_token1]; AGroup 15405 1 [anon_sym_LPAREN];
     AGroup 15407 1 [sym_kHat]; AGroup 15409 1 [sym_ppFragmentExpr];
     AGroup 15411 1 [sym_identifier]; AGroup 15413 1 [sym_kSpecialize];
     AGroup 15415 1 [sym_kReference]; AGroup 15417 1 [sym_kArray]; AGroup 15419 1 [sym_kClass];
     AGroup 15423 1 [sym_kFile]; AGroup 15427 1 [sym_kPacked]; AGroup 15429 1 [sym_kRecord];
     AGroup 15431 1 [sym_kSet]; AGroup 15433 1 [sym_kString]; SGroup 3836 1 [sym__ppIf];
     SGroup 10605 1 [sym__subRangeUnary]; SGroup 10614 1 [sym__subRangeBinary];
     SGroup 10620 1 [sym__subRangeCall]; SGroup 12067 1 [sym_type]; AGroup 3 2 syms_5;
     AGroup 14851 2 syms_6; AGroup 14855 2 syms_7; AGroup 14857 2 syms_8; AGroup 14861 2 syms_9;
     AGroup 15425 2 syms_11; SGroup 10647 2 syms_12; SGroup 10482 3 syms_13;
     SGroup 11244 3 syms_30; SGroup 10538 4 syms_31; SGroup 12943 10 syms_32]);
   (50717, 24, [AGroup 5 1 [sym_ppDirective]; AGroup 15647 1 [anon_sym_LBRACK];
     AGroup 15649 1 [anon_sym_LPAREN]; AGroup 15653 1 [anon_sym_POUND];
     AGroup 15665 1 [sym_identifier]; AGroup 15667 1 [sym_kSpecialize];
     AGroup 15673 1 [sym_kInherited]; AGroup 15675 1 [sym_kString]; AGroup 15755 1 [sym_kIf];
     SGroup 3350 1 [aux_sym_recInitializer_repeat1]; SGroup 13518 1 [sym_recInitializerField];
     AGroup 3 2 syms_5; AGroup 15651 2 syms_6; AGroup 15655 2 syms_7; AGroup 15657 2 syms_8;
     AGroup 15669 2 syms_11; AGroup 15747 2 syms_9; AGroup 15749 2 syms_10;
     SGroup 8129 2 syms_12; SGroup 7100 3 syms_13; SGroup 13515 3 syms_56;
     AGroup 15751 4 syms_57; SGroup 9426 4 syms_14; SGroup 8464 14 syms_17])
  ].

(** States 3259 to 3358. *)
Definition small_runs_3259 : list small_run :=
  [
   (50821, 32, [AGroup 5 1 [sym_ppDirective]; AGroup 14853 1 [anon_sym_POUND];
     AGroup 14859 1 [aux_sym_ppUsesBlock_token1]; AGroup 15357 1 [anon_sym_LPAREN];
     AGroup 15359 1 [sym_kHat]; AGroup 15361 1 [sym_ppFragmentExpr];
     AGroup 15363 1 [sym_identifier]; AGroup 15365 1 [sym_kSpecialize];
     AGroup 15367 1 [sym_kReference]; AGroup 15369 1 [sym_kArray]; AGroup 15371 1 [sym_kClass];
     AGroup 15375 1 [sym_kFile]; AGroup 15379 1 [sym_kPacked]; AGroup 15381 1 [sym_kRecord];
     AGroup 15383 1 [sym_kSet]; AGroup 15385 1 [sym_kString]; SGroup 3813 1 [sym__ppIf];
     SGroup 10605 1 [sym__subRangeUnary]; SGroup 10614 1 [sym__subRangeBinary];
     SGroup 10620 1 [sym__subRangeCall]; SGroup 10913 1 [sym_type]; AGroup 3 2 syms_5;
     AGroup 14851 2 syms_6; AGroup 14855 2 syms_7; AGroup 14857 2 syms_8; AGroup 14861 2 syms_9;
     AGroup 15377 2 syms_11; SGroup 10647 2 syms_12; SGroup 10482 3 syms_13;
     SGroup 11272 3 syms_30; SGroup 10358 4 syms_31; SGroup 11091 10 syms_32]);
   (50941, 32, [AGroup 5 1 [sym_ppDirective]; AGroup 14853 1 [anon_sym_POUND];
     AGroup 14859 1 [aux_sym_ppUsesBlock_token1]; AGroup 15357 1 [anon_sym_LPAREN];
     AGroup 15359 1 [sym_kHat]; AGroup 15361 1 [sym_ppFragmentExpr];
     AGroup 15363 1 [sym_identifier]; AGroup 15365 1 [sym_kSpecialize];
     AGroup 15367 1 [sym_kReference]; AGroup 15369 1 [sym_kArray]; AGroup 15371 1 [sym_kClass];
     AGroup 15375 1 [sym_kFile]; AGroup 15379 1 [sym_kPacked]; AGroup 15381 1 [sym_kRecord];
     AGroup 15383 1 [sym_kSet]; AGroup 15385 1 [sym_kString]; SGroup 3813 1 [sym__ppIf];
     SGroup 10605 1 [sym__subRangeUnary]; SGroup 10614 1 [sym__subRangeBinary];
     SGroup 10620 1 [sym__subRangeCall]; SGroup 10971 1 [sym_type]; AGroup 3 2 syms_5;
     AGroup 14851 2 syms_6; AGroup 14855 2 syms_7; AGroup 14857 2 syms_8; AGroup 14861 2 syms_9;
     AGroup 15377 2 syms_11; SGroup 10647 2 syms_12; SGroup 10482 3 syms_13;
     SGroup 11272 3 syms_30; SGroup 10358 4 syms_31; SGroup 11091 10 syms_32]);
   (51061, 32, [AGroup 5 1 [sym_ppDirective]; AGroup 14849 1 [anon_sym_LPAREN];
     AGroup 14853 1 [anon_sym_POUND]; AGroup 14859 1 [aux_sym_ppUsesBlock_token1];
     AGroup 14863 1 [sym_kHat]; AGroup 14865 1 [sym_ppFragmentExpr];
     AGroup 14867 1 [sym_identifier]; AGroup 14871 1 [sym_kSpecialize];
     AGroup 14873 1 [sym_kReference]; AGroup 14875 1 [sym_kArray]; AGroup 14881 1 [sym_kFile];
     AGroup 14889 1 [sym_kSet]; AGroup 14891 1 [sym_kString]; AGroup 15387 1 [sym_kClass];
     AGroup 15391 1 [sym_kPacked]; AGroup 15393 1 [sym_kRecord]; SGroup 3870 1 [sym__ppIf];
     SGroup 10605 1 [sym__subRangeUnary]; SGroup 10614 1 [sym__subRangeBinary];
     SGroup 10620 1 [sym__subRangeCall]; SGroup 12932 1 [sym_type]; AGroup 3 2 syms_5;
     AGroup 14851 2 syms_6; AGroup 14855 2 syms_7; AGroup 14857 2 syms_8; AGroup 14861 2 syms_9;
     AGroup 14883 2 syms_11; SGroup 10647 2 syms_12; SGroup 10482 3 syms_13;
     SGroup 11313 3 syms_30; SGroup 10505 4 syms_31; SGroup 12384 10 syms_32]);
   (51181, 32, [AGroup 5 1 [sym_ppDirective]; AGroup 14853 1 [anon_sym_POUND];
     AGroup 14859 1 [aux_sym_ppUsesBlock_token1]; AGroup 15357 1 [anon_sym_LPAREN];
     AGroup 15359 1 [sym_kHat]; AGroup 15361 1 [sym_ppFragmentExpr];
     AGroup 15363 1 [sym_identifier]; AGroup 15365 1 [sym_kSpecialize];
     AGroup 15367 1 [sym_kReference]; AGroup 15369 1 [sym_kArray]; AGroup 15371 1 [sym_kClass];
     AGroup 15375 1 [sym_kFile]; AGroup 15379 1 [sym_kPacked]; AGroup 15381 1 [sym_kRecord];
     AGroup 15383 1 [sym_kSet]; AGroup 15385 1 [sym_kString]; SGroup 3813 1 [sym__ppIf];
     SGroup 10605 1 [sym__subRangeUnary]; SGroup 10614 1 [sym__subRangeBinary];
     SGroup 10620 1 [sym__subRangeCall]; SGroup 10939 1 [sym_type]; AGroup 3 2 syms_5;
     AGroup 14851 2 syms_6; AGroup 14855 2 syms_7; AGroup 14857 2 syms_8; AGroup 14861 2 syms_9;
     AGroup 15377 2 syms_11; SGroup 10647 2 syms_12; SGroup 10482 3 syms_13;
     SGroup 11272 3 syms_30; SGroup 10358 4 syms_31; SGroup 11091 10 syms_32]);
   (51301, 32, [AGroup 5 1 [sym_ppDirective]; AGroup 14853 1 [anon_sym_POUND];
     AGroup 14859 1 [aux_sym_ppUsesBlock_token1]; AGroup 15357 1 [anon_sym_LPAREN];
     AGroup 15359 1 [sym_kHat]; AGroup 15361 1 [sym_ppFragmentExpr];
     AGroup 15363 1 [sym_identifier]; AGroup 15365 1 [sym_kSpecialize];
     AGroup 15367 1 [sym_kReference]; AGroup 15369 1 [sym_kArray]; AGroup 15371 1 [sym_kClass];
     AGroup 15375 1 [sym_kFile]; AGroup 15379 1 [sym_kPacked]; AGroup 15381 1 [sym_kRecord];
     AGroup 15383 1 [sym_kSet]; AGroup 15385 1 [sym_kString]; SGroup 3813 1 [sym__ppIf];
     SGroup 10605 1 [sym__subRangeUnary]; SGroup 10614 1 [sym__subRangeBinary];
     SGroup 10620 1 [sym__subRangeCall]; SGroup 10951 1 [sym_type]; AGroup 3 2 syms_5;
     AGroup 14851 2 syms_6; AGroup 14855 2 syms_7; AGroup 14857 2 syms_8; AGroup 14861 2 syms_9;
     AGroup 15377 2 syms_11; SGroup 10647 2 syms_12; SGroup 10482 3 syms_13;
     SGroup 11272 3 syms_30; SGroup 10358 4 syms_31; SGroup 11091 10 syms_32]);
   (51421, 32, [AGroup 5 1 [sym_ppDirective]; AGroup 14853 1 [anon_sym_POUND];
     AGroup 14859 1 [aux_sym_ppUsesBlock_token1]; AGroup 15357 1 [anon_sym_LPAREN];
     AGroup 15359 1 [sym_kHat]; AGroup 15361 1 [sym_ppFragmentExpr];
     AGroup 15363 1 [sym_identifier]; AGroup 15365 1 [sym_kSpecialize];
     AGroup 15367 1 [sym_kReference]; AGroup 15369 1 [sym_kArray]; AGroup 15371 1 [sym_kClass];
     AGroup 15375 1 [sym_kFile]; AGroup 15379 1 [sym_kPacked]; AGroup 15381 1 [sym_kRecord];
     AGroup 15383 1 [sym_kSet]; AGroup 15385 1 [sym_kString]; SGroup 3813 1 [sym__ppIf];
     SGroup 10605 1 [sym__subRangeUnary]; SGroup 10614 1 [sym__subRangeBinary];
     SGroup 10620 1 [sym__subRangeCall]; SGroup 11015 1 [sym_type]; AGroup 3 2 syms_5;
     AGroup 14851 2 syms_6; AGroup 14855 2 syms_7; AGroup 14857 2 syms_8; AGroup 14861 2 syms_9;
     AGroup 15377 2 syms_11; SGroup 10647 2 syms_12; SGroup 10482 3 syms_13;
     SGroup 11272 3 syms_30; SGroup 10358 4 syms_31; SGroup 11091 10 syms_32]);
   (51541, 32, [AGroup 5 1 [sym_ppDirective]; AGroup 14853 1 [anon_sym_POUND];
     AGroup 14859 1 [aux_sym_ppUsesBlock_token1]; AGroup 15405 1 [anon_sym_LPAREN];
     AGroup 15407 1 [sym_kHat]; AGroup 15409 1 [sym_ppFragmentExpr];
     AGroup 15411 1 [sym_identifier]; AGroup 15413 1 [sym_kSpecialize];
     AGroup 15415 1 [sym_kReference]; AGroup 15417 1 [sym_kArray]; AGroup 15419 1 [sym_kClass];
     AGroup 15423 1 [sym_kFile]; AGroup 15427 1 [sym_kPacked]; AGroup 15429 1 [sym_kRecord];
     AGroup 15431 1 [sym_kSet]; AGroup 15433 1 [sym_kString]; SGroup 3836 1 [sym__ppIf];
     SGroup 10605 1 [sym__subRangeUnary]; SGroup 10614 1 [sym__subRangeBinary];
     SGroup 10620 1 [sym__subRangeCall]; SGroup 12189 1 [sym_type]; AGroup 3 2 syms_5;
     AGroup 14851 2 syms_6; AGroup 14855 2 syms_7; AGroup 14857 2 syms_8; AGroup 14861 2 syms_9;
     AGroup 15425 2 syms_11; SGroup 10647 2 syms_12; SGroup 10482 3 syms_13;
     SGroup 11244 3 syms_30; SGroup 10538 4 syms_31; SGroup 12943 10 syms_32]);
   (51661, 32, [AGroup 5 1 [sym_ppDirective]; AGroup 14849 1 [anon_sym_LPAREN];
     AGroup 14853 1 [anon_sym_POUND]; AGroup 14859 1 [aux_sym_ppUsesBlock_token1];
     AGroup 14863 1 [sym_kHat]; AGroup 14865 1 [sym_ppFragmentExpr];
     AGroup 14867 1 [sym_identifier]; AGroup 14871 1 [sym_kSpecialize];
     AGroup 14873 1 [sym_kReference]; AGroup 14875 1 [sym_kArray]; AGroup 14881 1 [sym_kFile];
     AGroup 14889 1 [sym_kSet]; AGroup 14891 1 [sym_kString]; AGroup 15387 1 [sym_kClass];
     AGroup 15391 1 [sym_kPacked]; AGroup 15393 1 [sym_kRecord]; SGroup 3870 1 [sym__ppIf];
     SGroup 10605 1 [sym__subRangeUnary]; SGroup 10614 1 [sym__subRangeBinary];
     SGroup 10620 1 [sym__subRangeCall]; SGroup 12498 1 [sym_type]; AGroup 3 2 syms_5;
     AGroup 14851 2 syms_6; AGroup 14855 2 syms_7; AGroup 14857 2 syms_8; AGroup 14861 2 syms_9;
     AGroup 14883 2 syms_11; SGroup 10647 2 syms_12; SGroup 10482 3 syms_13;
     SGroup 11313 3 syms_30; SGroup 10505 4 syms_31; SGroup 12384 10 syms_32]);
   (51781, 32, [AGroup 5 1 [sym_ppDirective]; AGroup 14853 1 [anon_sym_POUND];
     AGroup 14859 1 [aux_sym_ppUsesBlock_token1]; AGroup 15405 1 [anon_sym_LPAREN];
     AGroup 15407 1 [sym_kHat]; AGroup 15409 1 [sym_ppFragmentExpr];
     AGroup 15411 1 [sym_identifier]; AGroup 15413 1 [sym_kSpecialize];
     AGroup 15415 1 [sym_kReference]; AGroup 15417 1 [sym_kArray]; AGroup 15419 1 [sym_kClass];
     AGroup 15423 1 [sym_kFile]; AGroup 15427 1 [sym_kPacked]; AGroup 15429 1 [sym_kRecord];
     AGroup 15431 1 [sym_kSet]; AGroup 15433 1 [sym_kString]; SGroup 3836 1 [sym__ppIf];
     SGroup 10605 1 [sym__subRangeUnary]; SGroup 10614 1 [sym__subRangeBinary];
     SGroup 10620 1 [sym__subRangeCall]; SGroup 12133 1 [sym_type]; AGroup 3 2 syms_5;
     AGroup 14851 2 syms_6; AGroup 14855 2 syms_7; AGroup 14857 2 syms_8; AGroup 14861 2 syms_9;
     AGroup 15425 2 syms_11; SGroup 10647 2 syms_12; SGroup 10482 3 syms_13;
     SGroup 11244 3 syms_30; SGroup 10538 4 syms_31; SGroup 12943 10 syms_32]);
   (51901, 32, [AGroup 5 1 [sym_ppDirective]; AGroup 14853 1 [anon_sym_POUND];
     AGroup 14859 1 [aux_sym_ppUsesBlock_token1]; AGroup 15405 1 [anon_sym_LPAREN];
     AGroup 15407 1 [sym_kHat]; AGroup 15409 1 [sym_ppFragmentExpr];
     AGroup 15411 1 [sym_identifier]; AGroup 15413 1 [sym_kSpecialize];
     AGroup 15415 1 [sym_kReference]; AGroup 15417 1 [sym_kArray]; AGroup 15419 1 [sym_kClass];
     AGroup 15423 1 [sym_kFile]; AGroup 15427 1 [sym_kPacked]; AGroup 15429 1 [sym_kRecord];
     AGroup 15431 1 [sym_kSet]; AGroup 15433 1 [sym_kString]; SGroup 3836 1 [sym__ppIf];
     SGroup 10605 1 [sym__subRangeUnary]; SGroup 10614 1 [sym__subRangeBinary];
     SGroup 10620 1 [sym__subRangeCall]; SGroup 12134 1 [sym_type]; AGroup 3 2 syms_5;
     AGroup 14851 2 syms_6; AGroup 14855 2 syms_7; AGroup 14857 2 syms_8; AGroup 14861 2 syms_9;
     AGroup 15425 2 syms_11; SGroup 10647 2 syms_12; SGroup 10482 3 syms_13;
     SGroup 11244 3 syms_30; SGroup 10538 4 syms_31; SGroup 12943 10 syms_32]);
   (52021, 32, [AGroup 5 1 [sym_ppDirective]; AGroup 14853 1 [anon_sym_POUND];
     AGroup 14859 1 [aux_sym_ppUsesBlock_token1]; AGroup 15357 1 [anon_sym_LPAREN];
     AGroup 15359 1 [sym_kHat]; AGroup 15361 1 [sym_ppFragmentExpr];
     AGroup 15363 1 [sym_identifier]; AGroup 15365 1 [sym_kSpecialize];
     AGroup 15367 1 [sym_kReference]; AGroup 15369 1 [sym_kArray]; AGroup 15371 1 [sym_kClass];
     AGroup 15375 1 [sym_kFile]; AGroup 15379 1 [sym_kPacked]; AGroup 15381 1 [sym_kRecord];
     AGroup 15383 1 [sym_kSet]; AGroup 15385 1 [sym_kString]; SGroup 3813 1 [sym__ppIf];
     SGroup 10605 1 [sym__subRangeUnary]; SGroup 10614 1 [sym__subRangeBinary];
     SGroup 10620 1 [sym__subRangeCall]; SGroup 11213 1 [sym_type]; AGroup 3 2 syms_5;
     AGroup 14851 2 syms_6; AGroup 14855 2 syms_7; AGroup 14857 2 syms_8; AGroup 14861 2 syms_9;
     AGroup 15377 2 syms_11; SGroup 10647 2 syms_12; SGroup 10482 3 syms_13;
     SGroup 11272 3 syms_30; SGroup 10358 4 syms_31; SGroup 11091 10 syms_32]);
   (52141, 32, [AGroup 5 1 [sym_ppDirective]; AGroup 14853 1 [anon_sym_POUND];
     AGroup 14859 1 [aux_sym_ppUsesBlock_token1]; AGroup 15357 1 [anon_sym_LPAREN];
     AGroup 15359 1 [sym_kHat]; AGroup 15361 1 [sym_ppFragmentExpr];
     AGroup 15363 1 [sym_identifier]; AGroup 15365 1 [sym_kSpecialize];
     AGroup 15367 1 [sym_kReference]; AGroup 15369 1 [sym_kArray]; AGroup 15371 1 [sym_kClass];
     AGroup 15375 1 [sym_kFile]; AGroup 15379 1 [sym_kPacked]; AGroup 15381 1 [sym_kRecord];
     AGroup 15383 1 [sym_kSet]; AGroup 15385 1 [sym_kString]; SGroup 3813 1 [sym__ppIf];
     SGroup 10605 1 [sym__subRangeUnary]; SGroup 10614 1 [sym__subRangeBinary];
     SGroup 10620 1 [sym__subRangeCall]; SGroup 11207 1 [sym_type]; AGroup 3 2 syms_5;
     AGroup 14851 2 syms_6; AGroup 14855 2 syms_7; AGroup 14857 2 syms_8; AGroup 14861 2 syms_9;
     AGroup 15377 2 syms_11; SGroup 10647 2 syms_12; SGroup 10482 3 syms_13;
     SGroup 11272 3 syms_30; SGroup 10358 4 syms_31; SGroup 11091 10 syms_32]);
   (52261, 32, [AGroup 5 1 [sym_ppDirective]; AGroup 14849 1 [anon_sym_LPAREN];
     AGroup 14853 1 [anon_sym_POUND]; AGroup 14859 1 [aux_sym_ppUsesBlock_token1];
     AGroup 14863 1 [sym_kHat]; AGroup 14865 1 [sym_ppFragmentExpr];
     AGroup 14867 1 [sym_identifier]; AGroup 14871 1 [sym_kSpecialize];
     AGroup 14873 1 [sym_kReference]; AGroup 14875 1 [sym_kArray]; AGroup 14881 1 [sym_kFile];
     AGroup 14889 1 [sym_kSet]; AGroup 14891 1 [sym_kString]; AGroup 15387 1 [sym_kClass];
     AGroup 15391 1 [sym_kPacked]; AGroup 15393 1 [sym_kRecord]; SGroup 3870 1 [sym__ppIf];
     SGroup 10605 1 [sym__subRangeUnary]; SGroup 10614 1 [sym__subRangeBinary];
     SGroup 10620 1 [sym__subRangeCall]; SGroup 12533 1 [sym_type]; AGroup 3 2 syms_5;
     AGroup 14851 2 syms_6; AGroup 14855 2 syms_7; AGroup 14857 2 syms_8; AGroup 14861 2 syms_9;
     AGroup 14883 2 syms_11; SGroup 10647 2 syms_12; SGroup 10482 3 syms_13;
     SGroup 11313 3 syms_30; SGroup 10505 4 syms_31; SGroup 12384 10 syms_32]);
   (52381, 32, [AGroup 5 1 [sym_ppDirective]; AGroup 14853 1 [anon_sym_POUND];
     AGroup 14859 1 [aux_sym_ppUsesBlock_token1]; AGroup 15405 1 [anon_sym_LPAREN];
     AGroup 15407 1 [sym_kHat]; AGroup 15409 1 [sym_ppFragmentExpr];
     AGroup 15411 1 [sym_identifier]; AGroup 15413 1 [sym_kSpecialize];
     AGroup 15415 1 [sym_kReference]; AGroup 15417 1 [sym_kArray]; AGroup 15419 1 [sym_kClass];
     AGroup 15423 1 [sym_kFile]; AGroup 15427 1 [sym_kPacked]; AGroup 15429 1 [sym_kRecord];
     AGroup 15431 1 [sym_kSet]; AGroup 15433 1 [sym_kString]; SGroup 3836 1 [sym__ppIf];
     SGroup 10605 1 [sym__subRangeUnary]; SGroup 10614 1 [sym__subRangeBinary];
     SGroup 10620 1 [sym__subRangeCall]; SGroup 12397 1 [sym_type]; AGroup 3 2 syms_5;
     AGroup 14851 2 syms_6; AGroup 14855 2 syms_7; AGroup 14857 2 syms_8; AGroup 14861 2 syms_9;
     AGroup 15425 2 syms_11; SGroup 10647 2 syms_12; SGroup 10482 3 syms_13;
     SGroup 11244 3 syms_30; SGroup 10538 4 syms_31; SGroup 12943 10 syms_32]);
   (52501, 32, [AGroup 5 1 [sym_ppDirective]; AGroup 14849 1 [anon_sym_LPAREN];
     AGroup 14853 1 [anon_sym_POUND]; AGroup 14859 1 [aux_sym_ppUsesBlock_token1];
     AGroup 14863 1 [sym_kHat]; AGroup 14865 1 [sym_ppFragmentExpr];
     AGroup 14867 1 [sym_identifier]; AGroup 14871 1 [sym_kSpecialize];
     AGroup 14873 1 [sym_kReference]; AGroup 14875 1 [sym_kArray]; AGroup 14881 1 [sym_kFile];
     AGroup 14889 1 [sym_kSet]; AGroup 14891 1 [sym_kString]; AGroup 15387 1 [sym_kClass];
     AGroup 15391 1 [sym_kPacked]; AGroup 15393 1 [sym_kRecord]; SGroup 3870 1 [sym__ppIf];
     SGroup 10605 1 [sym__subRangeUnary]; SGroup 10614 1 [sym__subRangeBinary];
     SGroup 10620 1 [sym__subRangeCall]; SGroup 12540 1 [sym_type]; AGroup 3 2 syms_5;
     AGroup 14851 2 syms_6; AGroup 14855 2 syms_7; AGroup 14857 2 syms_8; AGroup 14861 2 syms_9;
     AGroup 14883 2 syms_11; SGroup 10647 2 syms_12; SGroup 10482 3 syms_13;
     SGroup 11313 3 syms_30; SGroup 10505 4 syms_31; SGroup 12384 10 syms_32]);
   (52621, 32, [AGroup 5 1 [sym_ppDirective]; AGroup 14849 1 [anon_sym_LPAREN];
     AGroup 14853 1 [anon_sym_POUND]; AGroup 14859 1 [aux_sym_ppUsesBlock_token1];
     AGroup 14863 1 [sym_kHat]; AGroup 14865 1 [sym_ppFragmentExpr];
     AGroup 14867 1 [sym_identifier]; AGroup 14871 1 [sym_kSpecialize];
     AGroup 14873 1 [sym_kReference]; AGroup 14875 1 [sym_kArray]; AGroup 14881 1 [sym_kFile];
     AGroup 14889 1 [sym_kSet]; AGroup 14891 1 [sym_kString]; AGroup 15387 1 [sym_kClass];
     AGroup 15391 1 [sym_kPacked]; AGroup 15393 1 [sym_kRecord]; SGroup 3870 1 [sym__ppIf];
     SGroup 10605 1 [sym__subRangeUnary]; SGroup 10614 1 [sym__subRangeBinary];
     SGroup 10620 1 [sym__subRangeCall]; SGroup 13151 1 [sym_type]; AGroup 3 2 syms_5;
     AGroup 14851 2 syms_6; AGroup 14855 2 syms_7; AGroup 14857 2 syms_8; AGroup 14861 2 syms_9;
     AGroup 14883 2 syms_11; SGroup 10647 2 syms_12; SGroup 10482 3 syms_13;
     SGroup 11313 3 syms_30; SGroup 10505 4 syms_31; SGroup 12384 10 syms_32]);
   (52741, 32, [AGroup 5 1 [sym_ppDirective]; AGroup 14849 1 [anon_sym_LPAREN];
     AGroup 14853 1 [anon_sym_POUND]; AGroup 14859 1 [aux_sym_ppUsesBlock_token1];
     AGroup 14863 1 [sym_kHat]; AGroup 14865 1 [sym_ppFragmentExpr];
     AGroup 14867 1 [sym_identifier]; AGroup 14871 1 [sym_kSpecialize];
     AGroup 14873 1 [sym_kReference]; AGroup 14875 1 [sym_kArray]; AGroup 14881 1 [sym_kFile];
     AGroup 14889 1 [sym_kSet]; AGroup 14891 1 [sym_kString]; AGroup 15387 1 [sym_kClass];
     AGroup 15391 1 [sym_kPacked]; AGroup 15393 1 [sym_kRecord]; SGroup 3870 1 [sym__ppIf];
     SGroup 10605 1 [sym__subRangeUnary]; SGroup 10614 1 [sym__subRangeBinary];
     SGroup 10620 1 [sym__subRangeCall]; SGroup 12551 1 [sym_type]; AGroup 3 2 syms_5;
     AGroup 14851 2 syms_6; AGroup 14855 2 syms_7; AGroup 14857 2 syms_8; AGroup 14861 2 syms_9;
     AGroup 14883 2 syms_11; SGroup 10647 2 syms_12; SGroup 10482 3 syms_13;
     SGroup 11313 3 syms_30; SGroup 10505 4 syms_31; SGroup 12384 10 syms_32]);
   (52861, 32, [AGroup 5 1 [sym_ppDirective]; AGroup 14853 1 [anon_sym_POUND];
     AGroup 14859 1 [aux_sym_ppUsesBlock_token1]; AGroup 15405 1 [anon_sym_LPAREN];
     AGroup 15407 1 [sym_kHat]; AGroup 15409 1 [sym_ppFragmentExpr];
     AGroup 15411 1 [sym_identifier]; AGroup 15413 1 [sym_kSpecialize];
     AGroup 15415 1 [sym_kReference]; AGroup 15417 1 [sym_kArray]; AGroup 15419 1 [sym_kClass];
     AGroup 15423 1 [sym_kFile]; AGroup 15427 1 [sym_kPacked]; AGroup 15429 1 [sym_kRecord];
     AGroup 15431 1 [sym_kSet]; AGroup 15433 1 [sym_kString]; SGroup 3836 1 [sym__ppIf];
     SGroup 10605 1 [sym__subRangeUnary]; SGroup 10614 1 [sym__subRangeBinary];
     SGroup 10620 1 [sym__subRangeCall]; SGroup 12240 1 [sym_type]; AGroup 3 2 syms_5;
     AGroup 14851 2 syms_6; AGroup 14855 2 syms_7; AGroup 14857 2 syms_8; AGroup 14861 2 syms_9;
     AGroup 15425 2 syms_11; SGroup 10647 2 syms_12; SGroup 10482 3 syms_13;
     SGroup 11244 3 syms_30; SGroup 10538 4 syms_31; SGroup 12943 10 syms_32]);
   (52981, 32, [AGroup 5 1 [sym_ppDirective]; AGroup 14853 1 [anon_sym_POUND];
     AGroup 14859 1 [aux_sym_ppUsesBlock_token1]; AGroup 15405 1 [anon_sym_LPAREN];
     AGroup 15407 1 [sym_kHat]; AGroup 15409 1 [sym_ppFragmentExpr];
     AGroup 15411 1 [sym_identifier]; AGroup 15413 1 [sym_kSpecialize];
     AGroup 15415 1 [sym_kReference]; AGroup 15417 1 [sym_kArray]; AGroup 15419 1 [sym_kClass];
     AGroup 15423 1 [sym_kFile]; AGroup 15427 1 [sym_kPacked]; AGroup 15429 1 [sym_kRecord];
     AGroup 15431 1 [sym_kSet]; AGroup 15433 1 [sym_kString]; SGroup 3836 1 [sym__ppIf];
     SGroup 10605 1 [sym__subRangeUnary]; SGroup 10614 1 [sym__subRangeBinary];
     SGroup 10620 1 [sym__subRangeCall]; SGroup 12245 1 [sym_type]; AGroup 3 2 syms_5;
     AGroup 14851 2 syms_6; AGroup 14855 2 syms_7; AGroup 14857 2 syms_8; AGroup 14861 2 syms_9;
     AGroup 15425 2 syms_11; SGroup 10647 2 syms_12; SGroup 10482 3 syms_13;
     SGroup 11244 3 syms_30; SGroup 10538 4 syms_31; SGroup 12943 10 syms_32]);
   (53101, 32, [AGroup 5 1 [sym_ppDirective]; AGroup 14853 1 [anon_sym_POUND];
     AGroup 14859 1 [aux_sym_ppUsesBlock_token1]; AGroup 15405 1 [anon_sym_LPAREN];
     AGroup 15407 1 [sym_kHat]; AGroup 15409 1 [sym_ppFragmentExpr];
     AGroup 15411 1 [sym_identifier]; AGroup 15413 1 [sym_kSpecialize];
     AGroup 15415 1 [sym_kReference]; AGroup 15417 1 [sym_kArray]; AGroup 15419 1 [sym_kClass];
     AGroup 15423 1 [sym_kFile]; AGroup 15427 1 [sym_kPacked]; AGroup 15429 1 [sym_kRecord];
     AGroup 15431 1 [sym_kSet]; AGroup 15433 1 [sym_kString]; SGroup 3836 1 [sym__ppIf];
     SGroup 10605 1 [sym__subRangeUnary]; SGroup 10614 1 [sym__subRangeBinary];
     SGroup 10620 1 [sym__subRangeCall]; SGroup 12248 1 [sym_type]; AGroup 3 2 syms_5;
     AGroup 14851 2 syms_6; AGroup 14855 2 syms_7; AGroup 14857 2 syms_8; AGroup 14861 2 syms_9;
     AGroup 15425 2 syms_11; SGroup 10647 2 syms_12; SGroup 10482 3 syms_13;
     SGroup 11244 3 syms_30; SGroup 10538 4 syms_31; SGroup 12943 10 syms_32]);
   (53221, 32, [AGroup 5 1 [sym_ppDirective]; AGroup 14853 1 [anon_sym_POUND];
     AGroup 14859 1 [aux_sym_ppUsesBlock_token1]; AGroup 15405 1 [anon_sym_LPAREN];
     AGroup 15407 1 [sym_kHat]; AGroup 15409 1 [sym_ppFragmentExpr];
     AGroup 15411 1 [sym_identifier]; AGroup 15413 1 [sym_kSpecialize];
     AGroup 15415 1 [sym_kReference]; AGroup 15417 1 [sym_kArray]; AGroup 15419 1 [sym_kClass];
     AGroup 15423 1 [sym_kFile]; AGroup 15427 1 [sym_kPacked]; AGroup 15429 1 [sym_kRecord];
     AGroup 15431 1 [sym_kSet]; AGroup 15433 1 [sym_kString]; SGroup 3836 1 [sym__ppIf];
     SGroup 10605 1 [sym__subRangeUnary]; SGroup 10614 1 [sym__subRangeBinary];
     SGroup 10620 1 [sym__subRangeCall]; SGroup 12255 1 [sym_type]; AGroup 3 2 syms_5;
     AGroup 14851 2 syms_6; AGroup 14855 2 syms_7; AGroup 14857 2 syms_8; AGroup 14861 2 syms_9;
     AGroup 15425 2 syms_11; SGroup 10647 2 syms_12; SGroup 10482 3 syms_13;
     SGroup 11244 3 syms_30; SGroup 10538 4 syms_31; SGroup 12943 10 syms_32]);
   (53341, 32, [AGroup 5 1 [sym_ppDirective]; AGroup 14849 1 [anon_sym_LPAREN];
     AGroup 14853 1 [anon_sym_POUND]; AGroup 14859 1 [aux_sym_ppUsesBlock_token1];
     AGroup 14863 1 [sym_kHat]; AGroup 14865 1 [sym_ppFragmentExpr];
     AGroup 14867 1 [sym_identifier]; AGroup 14871 1 [sym_kSpecialize];
     AGroup 14873 1 [sym_kReference]; AGroup 14875 1 [sym_kArray]; AGroup 14881 1 [sym_kFile];
     AGroup 14889 1 [sym_kSet]; AGroup 14891 1 [sym_kString]; AGroup 15387 1 [sym_kClass];
     AGroup 15391 1 [sym_kPacked]; AGroup 15393 1 [sym_kRecord]; SGroup 3870 1 [sym__ppIf];
     SGroup 10605 1 [sym__subRangeUnary]; SGroup 10614 1 [sym__subRangeBinary];
     SGroup 10620 1 [sym__subRangeCall]; SGroup 13096 1 [sym_type]; AGroup 3 2 syms_5;
     AGroup 14851 2 syms_6; AGroup 14855 2 syms_7; AGroup 14857 2 syms_8; AGroup 14861 2 syms_9;
     AGroup 14883 2 syms_11; SGroup 10647 2 syms_12; SGroup 10482 3 syms_13;
     SGroup 11313 3 syms_30; SGroup 10505 4 syms_31; SGroup 12384 10 syms_32]);
   (53461, 24, [AGroup 5 1 [sym_ppDirective]; AGroup 15647 1 [anon_sym_LBRACK];
     AGroup 15649 1 [anon_sym_LPAREN]; AGroup 15653 1 [anon_sym_POUND];
     AGroup 15665 1 [sym_identifier]; AGroup 15667 1 [sym_kSpecialize];
     AGroup 15673 1 [sym_kInherited]; AGroup 15675 1 [sym_kString]; AGroup 15755 1 [sym_kIf];
     SGroup 3350 1 [aux_sym_recInitializer_repeat1]; SGroup 13408 1 [sym_recInitializerField];
     AGroup 3 2 syms_5; AGroup 15651 2 syms_6; AGroup 15655 2 syms_7; AGroup 15657 2 syms_8;
     AGroup 15669 2 syms_11; AGroup 15747 2 syms_9; AGroup 15749 2 syms_10;
     SGroup 8129 2 syms_12; SGroup 7100 3 syms_13; SGroup 13515 3 syms_56;
     AGroup 15751 4 syms_57; SGroup 9426 4 syms_14; SGroup 8464 14 syms_17]);
   (53565, 32, [AGroup 5 1 [sym_ppDirective]; AGroup 14849 1 [anon_sym_LPAREN];
     AGroup 14853 1 [anon_sym_POUND]; AGroup 14859 1 [aux_sym_ppUsesBlock_token1];
     AGroup 14863 1 [sym_kHat]; AGroup 14865 1 [sym_ppFragmentExpr];
     AGroup 14867 1 [sym_identifier]; AGroup 14871 1 [sym_kSpecialize];
     AGroup 14873 1 [sym_kReference]; AGroup 14875 1 [sym_kArray]; AGroup 14881 1 [sym_kFile];
     AGroup 14889 1 [sym_kSet]; AGroup 14891 1 [sym_kString]; AGroup 15387 1 [sym_kClass];
     AGroup 15391 1 [sym_kPacked]; AGroup 15393 1 [sym_kRecord]; SGroup 3870 1 [sym__ppIf];
     SGroup 10605 1 [sym__subRangeUnary]; SGroup 10614 1 [sym__subRangeBinary];
     SGroup 10620 1 [sym__subRangeCall]; SGroup 12570 1 [sym_type]; AGroup 3 2 syms_5;
     AGroup 14851 2 syms_6; AGroup 14855 2 syms_7; AGroup 14857 2 syms_8; AGroup 14861 2 syms_9;
     AGroup 14883 2 syms_11; SGroup 10647 2 syms_12; SGroup 10482 3 syms_13;
     SGroup 11313 3 syms_30; SGroup 10505 4 syms_31; SGroup 12384 10 syms_32]);
   (53685, 32, [AGroup 5 1 [sym_ppDirective]; AGroup 14849 1 [anon_sym_LPAREN];
     AGroup 14853 1 [anon_sym_POUND]; AGroup 14859 1 [aux_sym_ppUsesBlock_token1];
     AGroup 14863 1 [sym_kHat]; AGroup 14865 1 [sym_ppFragmentExpr];
     AGroup 14867 1 [sym_identifier]; AGroup 14871 1 [sym_kSpecialize];
     AGroup 14873 1 [sym_kReference]; AGroup 14875 1 [sym_kArray]; AGroup 14881 1 [sym_kFile];
     AGroup 14889 1 [sym_kSet]; AGroup 14891 1 [sym_kString]; AGroup 15387 1 [sym_kClass];
     AGroup 15391 1 [sym_kPacked]; AGroup 15393 1 [sym_kRecord]; SGroup 3870 1 [sym__ppIf];
     SGroup 10605 1 [sym__subRangeUnary]; SGroup 10614 1 [sym__subRangeBinary];
     SGroup 10620 1 [sym__subRangeCall]; SGroup 12573 1 [sym_type]; AGroup 3 2 syms_5;
     AGroup 14851 2 syms_6; AGroup 14855 2 syms_7; AGroup 14857 2 syms_8; AGroup 14861 2 syms_9;
     AGroup 14883 2 syms_11; SGroup 10647 2 syms_12; SGroup 10482 3 syms_13;
     SGroup 11313 3 syms_30; SGroup 10505 4 syms_31; SGroup 12384 10 syms_32]);
   (53805, 32, [AGroup 5 1 [sym_ppDirective]; AGroup 14849 1 [anon_sym_LPAREN];
     AGroup 14853 1 [anon_sym_POUND]; AGroup 14859 1 [aux_sym_ppUsesBlock_token1];
     AGroup 14863 1 [sym_kHat]; AGroup 14865 1 [sym_ppFragmentExpr];
     AGroup 14867 1 [sym_identifier]; AGroup 14871 1 [sym_kSpecialize];
     AGroup 14873 1 [sym_kReference]; AGroup 14875 1 [sym_kArray]; AGroup 14881 1 [sym_kFile];
     AGroup 14889 1 [sym_kSet]; AGroup 14891 1 [sym_kString]; AGroup 15387 1 [sym_kClass];
     AGroup 15391 1 [sym_kPacked]; AGroup 15393 1 [sym_kRecord]; SGroup 3870 1 [sym__ppIf];
     SGroup 10605 1 [sym__subRangeUnary]; SGroup 10614 1 [sym__subRangeBinary];
     SGroup 10620 1 [sym__subRangeCall]; SGroup 12574 1 [sym_type]; AGroup 3 2 syms_5;
     AGroup 14851 2 syms_6; AGroup 14855 2 syms_7; AGroup 14857 2 syms_8; AGroup 14861 2 syms_9;
     AGroup 14883 2 syms_11; SGroup 10647 2 syms_12; SGroup 10482 3 syms_13;
     SGroup 11313 3 syms_30; SGroup 10505 4 syms_31; SGroup 12384 10 syms_32]);
   (53925, 32, [AGroup 5 1 [sym_ppDirective]; AGroup 14853 1 [anon_sym_POUND];
     AGroup 14859 1 [aux_sym_ppUsesBlock_token1]; AGroup 15405 1 [anon_sym_LPAREN];
     AGroup 15407 1 [sym_kHat]; AGroup 15409 1 [sym_ppFragmentExpr];
     AGroup 15411 1 [sym_identifier]; AGroup 15413 1 [sym_kSpecialize];
     AGroup 15415 1 [sym_kReference]; AGroup 15417 1 [sym_kArray]; AGroup 15419 1 [sym_kClass];
     AGroup 15423 1 [sym_kFile]; AGroup 15427 1 [sym_kPacked]; AGroup 15429 1 [sym_kRecord];
     AGroup 15431 1 [sym_kSet]; AGroup 15433 1 [sym_kString]; SGroup 3836 1 [sym__ppIf];
     SGroup 10605 1 [sym__subRangeUnary]; SGroup 10614 1 [sym__subRangeBinary];
     SGroup 10620 1 [sym__subRangeCall]; SGroup 12331 1 [sym_type]; AGroup 3 2 syms_5;
     AGroup 14851 2 syms_6; AGroup 14855 2 syms_7; AGroup 14857 2 syms_8; AGroup 14861 2 syms_9;
     AGroup 15425 2 syms_11; SGroup 10647 2 syms_12; SGroup 10482 3 syms_13;
     SGroup 11244 3 syms_30; SGroup 10538 4 syms_31; SGroup 12943 10 syms_32]);
   (54045, 32, [AGroup 5 1 [sym_ppDirective]; AGroup 14853 1 [anon_sym_POUND];
     AGroup 14859 1 [aux_sym_ppUsesBlock_token1]; AGroup 15405 1 [anon_sym_LPAREN];
     AGroup 15407 1 [sym_kHat]; AGroup 15409 1 [sym_ppFragmentExpr];
     AGroup 15411 1 [sym_identifier]; AGroup 15413 1 [sym_kSpecialize];
     AGroup 15415 1 [sym_kReference]; AGroup 15417 1 [sym_kArray]; AGroup 15419 1 [sym_kClass];
     AGroup 15423 1 [sym_kFile]; AGroup 15427 1 [sym_kPacked]; AGroup 15429 1 [sym_kRecord];
     AGroup 15431 1 [sym_kSet]; AGroup 15433 1 [sym_kString]; SGroup 3836 1 [sym__ppIf];
     SGroup 10605 1 [sym__subRangeUnary]; SGroup 10614 1 [sym__subRangeBinary];
     SGroup 10620 1 [sym__subRangeCall]; SGroup 12336 1 [sym_type]; AGroup 3 2 syms_5;
     AGroup 14851 2 syms_6; AGroup 14855 2 syms_7; AGroup 14857 2 syms_8; AGroup 14861 2 syms_9;
     AGroup 15425 2 syms_11; SGroup 10647 2 syms_12; SGroup 10482 3 syms_13;
     SGroup 11244 3 syms_30; SGroup 10538 4 syms_31; SGroup 12943 10 syms_32]);
   (54165, 32, [AGroup 5 1 [sym_ppDirective]; AGroup 14849 1 [anon_sym_LPAREN];
     AGroup 14853 1 [anon_sym_POUND]; AGroup 14859 1 [aux_sym_ppUsesBlock_token1];
     AGroup 14863 1 [sym_kHat]; AGroup 14865 1 [sym_ppFragmentExpr];
     AGroup 14867 1 [sym_identifier]; AGroup 14871 1 [sym_kSpecialize];
     AGroup 14873 1 [sym_kReference]; AGroup 14875 1 [sym_kArray]; AGroup 14881 1 [sym_kFile];
     AGroup 14889 1 [sym_kSet]; AGroup 14891 1 [sym_kString]; AGroup 15387 1 [sym_kClass];
     AGroup 15391 1 [sym_kPacked]; AGroup 15393 1 [sym_kRecord]; SGroup 3870 1 [sym__ppIf];
     SGroup 10605 1 [sym__subRangeUnary]; SGroup 10614 1 [sym__subRangeBinary];
     SGroup 10620 1 [sym__subRangeCall]; SGroup 12593 1 [sym_type]; AGroup 3 2 syms_5;
     AGroup 14851 2 syms_6; AGroup 14855 2 syms_7; AGroup 14857 2 syms_8; AGroup 14861 2 syms_9;
     AGroup 14883 2 syms_11; SGroup 10647 2 syms_12; SGroup 10482 3 syms_13;
     SGroup 11313 3 syms_30; SGroup 10505 4 syms_31; SGroup 12384 10 syms_32]);
   (54285, 5, [AGroup 5 1 [sym_ppDirective]; AGroup 3 2 syms_5; AGroup 15439 7 syms_34;
     AGroup 15403 18 syms_36; AGroup 15437 27 syms_72]);
   (54351, 32, [AGroup 5 1 [sym_ppDirective]; AGroup 14853 1 [anon_sym_POUND];
     AGroup 14859 1 [aux_sym_ppUsesBlock_token1]; AGroup 15299 1 [anon_sym_LPAREN];
     AGroup 15301 1 [sym_kHat]; AGroup 15303 1 [sym_ppFragmentExpr];
     AGroup 15305 1 [sym_identifier]; AGroup 15307 1 [sym_kSpecialize];
     AGroup 15309 1 [sym_kReference]; AGroup 15311 1 [sym_kArray]; AGroup 15313 1 [sym_kClass];
     AGroup 15317 1 [sym_kFile]; AGroup 15321 1 [sym_kPacked]; AGroup 15323 1 [sym_kRecord];
     AGroup 15325 1 [sym_kSet]; AGroup 15327 1 [sym_kString]; SGroup 3815 1 [sym__ppIf];
     SGroup 10605 1 [sym__subRangeUnary]; SGroup 10614 1 [sym__subRangeBinary];
     SGroup 10620 1 [sym__subRangeCall]; SGroup 13930 1 [sym_type]; AGroup 3 2 syms_5;
     AGroup 14851 2 syms_6; AGroup 14855 2 syms_7; AGroup 14857 2 syms_8; AGroup 14861 2 syms_9;
     AGroup 15319 2 syms_11; SGroup 10647 2 syms_12; SGroup 10482 3 syms_13;
     SGroup 11297 3 syms_30; SGroup 10560 4 syms_31; SGroup 13955 10 syms_32]);
   (54471, 32, [AGroup 5 1 [sym_ppDirective]; AGroup 14849 1 [anon_sym_LPAREN];
     AGroup 14853 1 [anon_sym_POUND]; AGroup 14859 1 [aux_sym_ppUsesBlock_token1];
     AGroup 14863 1 [sym_kHat]; AGroup 14865 1 [sym_ppFragmentExpr];
     AGroup 14867 1 [sym_identifier]; AGroup 14871 1 [sym_kSpecialize];
     AGroup 14873 1 [sym_kReference]; AGroup 14875 1 [sym_kArray]; AGroup 14881 1 [sym_kFile];
     AGroup 14889 1 [sym_kSet]; AGroup 14891 1 [sym_kString]; AGroup 15387 1 [sym_kClass];
     AGroup 15391 1 [sym_kPacked]; AGroup 15393 1 [sym_kRecord]; SGroup 3870 1 [sym__ppIf];
     SGroup 10605 1 [sym__subRangeUnary]; SGroup 10614 1 [sym__subRangeBinary];
     SGroup 10620 1 [sym__subRangeCall]; SGroup 12654 1 [sym_type]; AGroup 3 2 syms_5;
     AGroup 14851 2 syms_6; AGroup 14855 2 syms_7; AGroup 14857 2 syms_8; AGroup 14861 2 syms_9;
     AGroup 14883 2 syms_11; SGroup 10647 2 syms_12; SGroup 10482 3 syms_13;
     SGroup 11313 3 syms_30; SGroup 10505 4 syms_31; SGroup 12384 10 syms_32]);
   (54591, 32, [AGroup 5 1 [sym_ppDirective]; AGroup 14853 1 [anon_sym_POUND];
     AGroup 14859 1 [aux_sym_ppUsesBlock_token1]; AGroup 15405 1 [anon_sym_LPAREN];
     AGroup 15407 1 [sym_kHat]; AGroup 15409 1 [sym_ppFragmentExpr];
     AGroup 15411 1 [sym_identifier]; AGroup 15413 1 [sym_kSpecialize];
     AGroup 15415 1 [sym_kReference]; AGroup 15417 1 [sym_kArray]; AGroup 15419 1 [sym_kClass];
     AGroup 15423 1 [sym_kFile]; AGroup 15427 1 [sym_kPacked]; AGroup 15429 1 [sym_kRecord];
     AGroup 15431 1 [sym_kSet]; AGroup 15433 1 [sym_kString]; SGroup 3836 1 [sym__ppIf];
     SGroup 10605 1 [sym__subRangeUnary]; SGroup 10614 1 [sym__subRangeBinary];
     SGroup 10620 1 [sym__subRangeCall]; SGroup 12071 1 [sym_type]; AGroup 3 2 syms_5;
     AGroup 14851 2 syms_6; AGroup 14855 2 syms_7; AGroup 14857 2 syms_8; AGroup 14861 2 syms_9;
     AGroup 15425 2 syms_11; SGroup 10647 2 syms_12; SGroup 10482 3 syms_13;
     SGroup 11244 3 syms_30; SGroup 10538 4 syms_31; SGroup 12943 10 syms_32]);
   (54711, 32, [AGroup 5 1 [sym_ppDirective]; AGroup 14853 1 [anon_sym_POUND];
     AGroup 14859 1 [aux_sym_ppUsesBlock_token1]; AGroup 15405 1 [anon_sym_LPAREN];
     AGroup 15407 1 [sym_kHat]; AGroup 15409 1 [sym_ppFragmentExpr];
     AGroup 15411 1 [sym_identifier]; AGroup 15413 1 [sym_kSpecialize];
     AGroup 15415 1 [sym_kReference]; AGroup 15417 1 [sym_kArray]; AGroup 15419 1 [sym_kClass];
     AGroup 15423 1 [sym_kFile]; AGroup 15427 1 [sym_kPacked]; AGroup 15429 1 [sym_kRecord];
     AGroup 15431 1 [sym_kSet]; AGroup 15433 1 [sym_kString]; SGroup 3836 1 [sym__ppIf];
     SGroup 10605 1 [sym__subRangeUnary]; SGroup 10614 1 [sym__subRangeBinary];
     SGroup 10620 1 [sym__subRangeCall]; SGroup 12072 1 [sym_type]; AGroup 3 2 syms_5;
     AGroup 14851 2 syms_6; AGroup 14855 2 syms_7; AGroup 14857 2 syms_8; AGroup 14861 2 syms_9;
     AGroup 15425 2 syms_11; SGroup 10647 2 syms_12; SGroup 10482 3 syms_13;
     SGroup 11244 3 syms_30; SGroup 10538 4 syms_31; SGroup 12943 10 syms_32]);
   (54831, 32, [AGroup 5 1 [sym_ppDirective]; AGroup 14849 1 [anon_sym_LPAREN];
     AGroup 14853 1 [anon_sym_POUND]; AGroup 14859 1 [aux_sym_ppUsesBlock_token1];
     AGroup 14863 1 [sym_kHat]; AGroup 14865 1 [sym_ppFragmentExpr];
     AGroup 14867 1 [sym_identifier]; AGroup 14871 1 [sym_kSpecialize];
     AGroup 14873 1 [sym_kReference]; AGroup 14875 1 [sym_kArray]; AGroup 14881 1 [sym_kFile];
     AGroup 14889 1 [sym_kSet]; AGroup 14891 1 [sym_kString]; AGroup 15387 1 [sym_kClass];
     AGroup 15391 1 [sym_kPacked]; AGroup 15393 1 [sym_kRecord]; SGroup 3870 1 [sym__ppIf];
     SGroup 10605 1 [sym__subRangeUnary]; SGroup 10614 1 [sym__subRangeBinary];
     SGroup 10620 1 [sym__subRangeCall]; SGroup 12681 1 [sym_type]; AGroup 3 2 syms_5;
     AGroup 14851 2 syms_6; AGroup 14855 2 syms_7; AGroup 14857 2 syms_8; AGroup 14861 2 syms_9;
     AGroup 14883 2 syms_11; SGroup 10647 2 syms_12; SGroup 10482 3 syms_13;
     SGroup 11313 3 syms_30; SGroup 10505 4 syms_31; SGroup 12384 10 syms_32]);
   (54951, 32, [AGroup 5 1 [sym_ppDirective]; AGroup 14849 1 [anon_sym_LPAREN];
     AGroup 14853 1 [anon_sym_POUND]; AGroup 14859 1 [aux_sym_ppUsesBlock_token1];
     AGroup 14863 1 [sym_kHat]; AGroup 14865 1 [sym_ppFragmentExpr];
     AGroup 14867 1 [sym_identifier]; AGroup 14871 1 [sym_kSpecialize];
     AGroup 14873 1 [sym_kReference]; AGroup 14875 1 [sym_kArray]; AGroup 14881 1 [sym_kFile];
     AGroup 14889 1 [sym_kSet]; AGroup 14891 1 [sym_kString]; AGroup 15387 1 [sym_kClass];
     AGroup 15391 1 [sym_kPacked]; AGroup 15393 1 [sym_kRecord]; SGroup 3870 1 [sym__ppIf];
     SGroup 10605 1 [sym__subRangeUnary]; SGroup 10614 1 [sym__subRangeBinary];
     SGroup 10620 1 [sym__subRangeCall]; SGroup 12684 1 [sym_type]; AGroup 3 2 syms_5;
     AGroup 14851 2 syms_6; AGroup 14855 2 syms_7; AGroup 14857 2 syms_8; AGroup 14861 2 syms_9;
     AGroup 14883 2 syms_11; SGroup 10647 2 syms_12; SGroup 10482 3 syms_13;
     SGroup 11313 3 syms_30; SGroup 10505 4 syms_31; SGroup 12384 10 syms_32]);
   (55071, 32, [AGroup 5 1 [sym_ppDirective]; AGroup 14849 1 [anon_sym_LPAREN];
     AGroup 14853 1 [anon_sym_POUND]; AGroup 14859 1 [aux_sym_ppUsesBlock_token1];
     AGroup 14863 1 [sym_kHat]; AGroup 14865 1 [sym_ppFragmentExpr];
     AGroup 14867 1 [sym_identifier]; AGroup 14871 1 [sym_kSpecialize];
     AGroup 14873 1 [sym_kReference]; AGroup 14875 1 [sym_kArray]; AGroup 14881 1 [sym_kFile];
     AGroup 14889 1 [sym_kSet]; AGroup 14891 1 [sym_kString]; AGroup 15387 1 [sym_kClass];
     AGroup 15391 1 [sym_kPacked]; AGroup 15393 1 [sym_kRecord]; SGroup 3870 1 [sym__ppIf];
     SGroup 10605 1 [sym__subRangeUnary]; SGroup 10614 1 [sym__subRangeBinary];
     SGroup 10620 1 [sym__subRangeCall]; SGroup 13095 1 [sym_type]; AGroup 3 2 syms_5;
     AGroup 14851 2 syms_6; AGroup 14855 2 syms_7; AGroup 14857 2 syms_8; AGroup 14861 2 syms_9;
     AGroup 14883 2 syms_11; SGroup 10647 2 syms_12; SGroup 10482 3 syms_13;
     SGroup 11313 3 syms_30; SGroup 10505 4 syms_31; SGroup 12384 10 syms_32]);
   (55191, 32, [AGroup 5 1 [sym_ppDirective]; AGroup 14849 1 [anon_sym_LPAREN];
     AGroup 14853 1 [anon_sym_POUND]; AGroup 14859 1 [aux_sym_ppUsesBlock_token1];
     AGroup 14863 1 [sym_kHat]; AGroup 14865 1 [sym_ppFragmentExpr];
     AGroup 14867 1 [sym_identifier]; AGroup 14871 1 [sym_kSpecialize];
     AGroup 14873 1 [sym_kReference]; AGroup 14875 1 [sym_kArray]; AGroup 14881 1 [sym_kFile];
     AGroup 14889 1 [sym_kSet]; AGroup 14891 1 [sym_kString]; AGroup 15387 1 [sym_kClass];
     AGroup 15391 1 [sym_kPacked]; AGroup 15393 1 [sym_kRecord]; SGroup 3870 1 [sym__ppIf];
     SGroup 10605 1 [sym__subRangeUnary]; SGroup 10614 1 [sym__subRangeBinary];
     SGroup 10620 1 [sym__subRangeCall]; SGroup 12692 1 [sym_type]; AGroup 3 2 syms_5;
     AGroup 14851 2 syms_6; AGroup 14855 2 syms_7; AGroup 14857 2 syms_8; AGroup 14861 2 syms_9;
     AGroup 14883 2 syms_11; SGroup 10647 2 syms_12; SGroup 10482 3 syms_13;
     SGroup 11313 3 syms_30; SGroup 10505 4 syms_31; SGroup 12384 10 syms_32]);
   (55311, 32, [AGroup 5 1 [sym_ppDirective]; AGroup 14853 1 [anon_sym_POUND];
     AGroup 14859 1 [aux_sym_ppUsesBlock_token1]; AGroup 15405 1 [anon_sym_LPAREN];
     AGroup 15407 1 [sym_kHat]; AGroup 15409 1 [sym_ppFragmentExpr];
     AGroup 15411 1 [sym_identifier]; AGroup 15413 1 [sym_kSpecialize];
     AGroup 15415 1 [sym_kReference]; AGroup 15417 1 [sym_kArray]; AGroup 15419 1 [sym_kClass];
     AGroup 15423 1 [sym_kFile]; AGroup 15427 1 [sym_kPacked]; AGroup 15429 1 [sym_kRecord];
     AGroup 15431 1 [sym_kSet]; AGroup 15433 1 [sym_kString]; SGroup 3836 1 [sym__ppIf];
     SGroup 10605 1 [sym__subRangeUnary]; SGroup 10614 1 [sym__subRangeBinary];
     SGroup 10620 1 [sym__subRangeCall]; SGroup 12102 1 [sym_type]; AGroup 3 2 syms_5;
     AGroup 14851 2 syms_6; AGroup 14855 2 syms_7; AGroup 14857 2 syms_8; AGroup 14861 2 syms_9;
     AGroup 15425 2 syms_11; SGroup 10647 2 syms_12; SGroup 10482 3 syms_13;
     SGroup 11244 3 syms_30; SGroup 10538 4 syms_31; SGroup 12943 10 syms_32]);
   (55431, 32, [AGroup 5 1 [sym_ppDirective]; AGroup 14853 1 [anon_sym_POUND];
     AGroup 14859 1 [aux_sym_ppUsesBlock_token1]; AGroup 15405 1 [anon_sym_LPAREN];
     AGroup 15407 1 [sym_kHat]; AGroup 15409 1 [sym_ppFragmentExpr];
     AGroup 15411 1 [sym_identifier]; AGroup 15413 1 [sym_kSpecialize];
     AGroup 15415 1 [sym_kReference]; AGroup 15417 1 [sym_kArray]; AGroup 15419 1 [sym_kClass];
     AGroup 15423 1 [sym_kFile]; AGroup 15427 1 [sym_kPacked]; AGroup 15429 1 [sym_kRecord];
     AGroup 15431 1 [sym_kSet]; AGroup 15433 1 [sym_kString]; SGroup 3836 1 [sym__ppIf];
     SGroup 10605 1 [sym__subRangeUnary]; SGroup 10614 1 [sym__subRangeBinary];
     SGroup 10620 1 [sym__subRangeCall]; SGroup 12103 1 [sym_type]; AGroup 3 2 syms_5;
     AGroup 14851 2 syms_6; AGroup 14855 2 syms_7; AGroup 14857 2 syms_8; AGroup 14861 2 syms_9;
     AGroup 15425 2 syms_11; SGroup 10647 2 syms_12; SGroup 10482 3 syms_13;
     SGroup 11244 3 syms_30; SGroup 10538 4 syms_31; SGroup 12943 10 syms_32]);
   (55551, 32, [AGroup 5 1 [sym_ppDirective]; AGroup 14853 1 [anon_sym_POUND];
     AGroup 14859 1 [aux_sym_ppUsesBlock_token1]; AGroup 15405 1 [anon_sym_LPAREN];
     AGroup 15407 1 [sym_kHat]; AGroup 15409 1 [sym_ppFragmentExpr];
     AGroup 15411 1 [sym_identifier]; AGroup 15413 1 [sym_kSpecialize];
     AGroup 15415 1 [sym_kReference]; AGroup 15417 1 [sym_kArray]; AGroup 15419 1 [sym_kClass];
     AGroup 15423 1 [sym_kFile]; AGroup 15427 1 [sym_kPacked]; AGroup 15429 1 [sym_kRecord];
     AGroup 15431 1 [sym_kSet]; AGroup 15433 1 [sym_kString]; SGroup 3836 1 [sym__ppIf];
     SGroup 10605 1 [sym__subRangeUnary]; SGroup 10614 1 [sym__subRangeBinary];
     SGroup 10620 1 [sym__subRangeCall]; SGroup 12107 1 [sym_type]; AGroup 3 2 syms_5;
     AGroup 14851 2 syms_6; AGroup 14855 2 syms_7; AGroup 14857 2 syms_8; AGroup 14861 2 syms_9;
     AGroup 15425 2 syms_11; SGroup 10647 2 syms_12; SGroup 10482 3 syms_13;
     SGroup 11244 3 syms_30; SGroup 10538 4 syms_31; SGroup 12943 10 syms_32]);
   (55671, 32, [AGroup 5 1 [sym_ppDirective]; AGroup 14853 1 [anon_sym_POUND];
     AGroup 14859 1 [aux_sym_ppUsesBlock_token1]; AGroup 15405 1 [anon_sym_LPAREN];
     AGroup 15407 1 [sym_kHat]; AGroup 15409 1 [sym_ppFragmentExpr];
     AGroup 15411 1 [sym_identifier]; AGroup 15413 1 [sym_kSpecialize];
     AGroup 15415 1 [sym_kReference]; AGroup 15417 1 [sym_kArray]; AGroup 15419 1 [sym_kClass];
     AGroup 15423 1 [sym_kFile]; AGroup 15427 1 [sym_kPacked]; AGroup 15429 1 [sym_kRecord];
     AGroup 15431 1 [sym_kSet]; AGroup 15433 1 [sym_kString]; SGroup 3836 1 [sym__ppIf];
     SGroup 10605 1 [sym__subRangeUnary]; SGroup 10614 1 [sym__subRangeBinary];
     SGroup 10620 1 [sym__subRangeCall]; SGroup 12094 1 [sym_type]; AGroup 3 2 syms_5;
     AGroup 14851 2 syms_6; AGroup 14855 2 syms_7; AGroup 14857 2 syms_8; AGroup 14861 2 syms_9;
     AGroup 15425 2 syms_11; SGroup 10647 2 syms_12; SGroup 10482 3 syms_13;
     SGroup 11244 3 syms_30; SGroup 10538 4 syms_31; SGroup 12943 10 syms_32]);
   (55791, 24, [AGroup 5 1 [sym_ppDirective]; AGroup 15647 1 [anon_sym_LBRACK];
     AGroup 15649 1 [anon_sym_LPAREN]; AGroup 15653 1 [anon_sym_POUND];
     AGroup 15665 1 [sym_identifier]; AGroup 15667 1 [sym_kSpecialize];
     AGroup 15673 1 [sym_kInherited]; AGroup 15675 1 [sym_kString]; AGroup 15755 1 [sym_kIf];
     SGroup 3350 1 [aux_sym_recInitializer_repeat1]; SGroup 13170 1 [sym_recInitializerField];
     AGroup 3 2 syms_5; AGroup 15651 2 syms_6; AGroup 15655 2 syms_7; AGroup 15657 2 syms_8;
     AGroup 15669 2 syms_11; AGroup 15747 2 syms_9; AGroup 15749 2 syms_10;
     SGroup 8129 2 syms_12; SGroup 7100 3 syms_13; SGroup 13515 3 syms_56;
     AGroup 15751 4 syms_57; SGroup 9426 4 syms_14; SGroup 8464 14 syms_17]);
   (55895, 32, [AGroup 5 1 [sym_ppDirective]; AGroup 14849 1 [anon_sym_LPAREN];
     AGroup 14853 1 [anon_sym_POUND]; AGroup 14859 1 [aux_sym_ppUsesBlock_token1];
     AGroup 14863 1 [sym_kHat]; AGroup 14865 1 [sym_ppFragmentExpr];
     AGroup 14867 1 [sym_identifier]; AGroup 14871 1 [sym_kSpecialize];
     AGroup 14873 1 [sym_kReference]; AGroup 14875 1 [sym_kArray]; AGroup 14881 1 [sym_kFile];
     AGroup 14889 1 [sym_kSet]; AGroup 14891 1 [sym_kString]; AGroup 15387 1 [sym_kClass];
     AGroup 15391 1 [sym_kPacked]; AGroup 15393 1 [sym_kRecord]; SGroup 3870 1 [sym__ppIf];
     SGroup 10605 1 [sym__subRangeUnary]; SGroup 10614 1 [sym__subRangeBinary];
     SGroup 10620 1 [sym__subRangeCall]; SGroup 12712 1 [sym_type]; AGroup 3 2 syms_5;
     AGroup 14851 2 syms_6; AGroup 14855 2 syms_7; AGroup 14857 2 syms_8; AGroup 14861 2 syms_9;
     AGroup 14883 2 syms_11; SGroup 10647 2 syms_12; SGroup 10482 3 syms_13;
     SGroup 11313 3 syms_30; SGroup 10505 4 syms_31; SGroup 12384 10 syms_32]);
   (56015, 32, [AGroup 5 1 [sym_ppDirective]; AGroup 14849 1 [anon_sym_LPAREN];
     AGroup 14853 1 [anon_sym_POUND]; AGroup 14859 1 [aux_sym_ppUsesBlock_token1];
     AGroup 14863 1 [sym_kHat]; AGroup 14865 1 [sym_ppFragmentExpr];
     AGroup 14867 1 [sym_identifier]; AGroup 14871 1 [sym_kSpecialize];
     AGroup 14873 1 [sym_kReference]; AGroup 14875 1 [sym_kArray]; AGroup 14881 1 [sym_kFile];
     AGroup 14889 1 [sym_kSet]; AGroup 14891 1 [sym_kString]; AGroup 15387 1 [sym_kClass];
     AGroup 15391 1 [sym_kPacked]; AGroup 15393 1 [sym_kRecord]; SGroup 3870 1 [sym__ppIf];
     SGroup 10605 1 [sym__subRangeUnary]; SGroup 10614 1 [sym__subRangeBinary];
     SGroup 10620 1 [sym__subRangeCall]; SGroup 12716 1 [sym_type]; AGroup 3 2 syms_5;
     AGroup 14851 2 syms_6; AGroup 14855 2 syms_7; AGroup 14857 2 syms_8; AGroup 14861 2 syms_9;
     AGroup 14883 2 syms_11; SGroup 10647 2 syms_12; SGroup 10482 3 syms_13;
     SGroup 11313 3 syms_30; SGroup 10505 4 syms_31; SGroup 12384 10 syms_32]);
   (56135, 32, [AGroup 5 1 [sym_ppDirective]; AGroup 14849 1 [anon_sym_LPAREN];
     AGroup 14853 1 [anon_sym_POUND]; AGroup 14859 1 [aux_sym_ppUsesBlock_token1];
     AGroup 14863 1 [sym_kHat]; AGroup 14865 1 [sym_ppFragmentExpr];
     AGroup 14867 1 [sym_identifier]; AGroup 14871 1 [sym_kSpecialize];
     AGroup 14873 1 [sym_kReference]; AGroup 14875 1 [sym_kArray]; AGroup 14881 1 [sym_kFile];
     AGroup 14889 1 [sym_kSet]; AGroup 14891 1 [sym_kString]; AGroup 15387 1 [sym_kClass];
     AGroup 15391 1 [sym_kPacked]; AGroup 15393 1 [sym_kRecord]; SGroup 3870 1 [sym__ppIf];
     SGroup 10605 1 [sym__subRangeUnary]; SGroup 10614 1 [sym__subRangeBinary];
     SGroup 10620 1 [sym__subRangeCall]; SGroup 12717 1 [sym_type]; AGroup 3 2 syms_5;
     AGroup 14851 2 syms_6; AGroup 14855 2 syms_7; AGroup 14857 2 syms_8; AGroup 14861 2 syms_9;
     AGroup 14883 2 syms_11; SGroup 10647 2 syms_12; SGroup 10482 3 syms_13;
     SGroup 11313 3 syms_30; SGroup 10505 4 syms_31; SGroup 12384 10 syms_32]);
   (56255, 32, [AGroup 5 1 [sym_ppDirective]; AGroup 14853 1 [anon_sym_POUND];
     AGroup 14859 1 [aux_sym_ppUsesBlock_token1]; AGroup 15405 1 [anon_sym_LPAREN];
     AGroup 15407 1 [sym_kHat]; AGroup 15409 1 [sym_ppFragmentExpr];
     AGroup 15411 1 [sym_identifier]; AGroup 15413 1 [sym_kSpecialize];
     AGroup 15415 1 [sym_kReference]; AGroup 15417 1 [sym_kArray]; AGroup 15419 1 [sym_kClass];
     AGroup 15423 1 [sym_kFile]; AGroup 15427 1 [sym_kPacked]; AGroup 15429 1 [sym_kRecord];
     AGroup 15431 1 [sym_kSet]; AGroup 15433 1 [sym_kString]; SGroup 3836 1 [sym__ppIf];
     SGroup 10605 1 [sym__subRangeUnary]; SGroup 10614 1 [sym__subRangeBinary];
     SGroup 10620 1 [sym__subRangeCall]; SGroup 12120 1 [sym_type]; AGroup 3 2 syms_5;
     AGroup 14851 2 syms_6; AGroup 14855 2 syms_7; AGroup 14857 2 syms_8; AGroup 14861 2 syms_9;
     AGroup 15425 2 syms_11; SGroup 10647 2 syms_12; SGroup 10482 3 syms_13;
     SGroup 11244 3 syms_30; SGroup 10538 4 syms_31; SGroup 12943 10 syms_32]);
   (56375, 32, [AGroup 5 1 [sym_ppDirective]; AGroup 14853 1 [anon_sym_POUND];
     AGroup 14859 1 [aux_sym_ppUsesBlock_token1]; AGroup 15405 1 [anon_sym_LPAREN];
     AGroup 15407 1 [sym_kHat]; AGroup 15409 1 [sym_ppFragmentExpr];
     AGroup 15411 1 [sym_identifier]; AGroup 15413 1 [sym_kSpecialize];
     AGroup 15415 1 [sym_kReference]; AGroup 15417 1 [sym_kArray]; AGroup 15419 1 [sym_kClass];
     AGroup 15423 1 [sym_kFile]; AGroup 15427 1 [sym_kPacked]; AGroup 15429 1 [sym_kRecord];
     AGroup 15431 1 [sym_kSet]; AGroup 15433 1 [sym_kString]; SGroup 3836 1 [sym__ppIf];
     SGroup 10605 1 [sym__subRangeUnary]; SGroup 10614 1 [sym__subRangeBinary];
     SGroup 10620 1 [sym__subRangeCall]; SGroup 12121 1 [sym_type]; AGroup 3 2 syms_5;
     AGroup 14851 2 syms_6; AGroup 14855 2 syms_7; AGroup 14857 2 syms_8; AGroup 14861 2 syms_9;
     AGroup 15425 2 syms_11; SGroup 10647 2 syms_12; SGroup 10482 3 syms_13;
     SGroup 11244 3 syms_30; SGroup 10538 4 syms_31; SGroup 12943 10 syms_32]);
   (56495, 5, [AGroup 5 1 [sym_ppDirective]; AGroup 3 2 syms_5; AGroup 15488 7 syms_34;
     AGroup 15403 18 syms_36; AGroup 15486 27 syms_72]);
   (56561, 32, [AGroup 5 1 [sym_ppDirective]; AGroup 14849 1 [anon_sym_LPAREN];
     AGroup 14853 1 [anon_sym_POUND]; AGroup 14859 1 [aux_sym_ppUsesBlock_token1];
     AGroup 14863 1 [sym_kHat]; AGroup 14865 1 [sym_ppFragmentExpr];
     AGroup 14867 1 [sym_identifier]; AGroup 14871 1 [sym_kSpecialize];
     AGroup 14873 1 [sym_kReference]; AGroup 14875 1 [sym_kArray]; AGroup 14881 1 [sym_kFile];
     AGroup 14889 1 [sym_kSet]; AGroup 14891 1 [sym_kString]; AGroup 15387 1 [sym_kClass];
     AGroup 15391 1 [sym_kPacked]; AGroup 15393 1 [sym_kRecord]; SGroup 3870 1 [sym__ppIf];
     SGroup 10605 1 [sym__subRangeUnary]; SGroup 10614 1 [sym__subRangeBinary];
     SGroup 10620 1 [sym__subRangeCall]; SGroup 12729 1 [sym_type]; AGroup 3 2 syms_5;
     AGroup 14851 2 syms_6; AGroup 14855 2 syms_7; AGroup 14857 2 syms_8; AGroup 14861 2 syms_9;
     AGroup 14883 2 syms_11; SGroup 10647 2 syms_12; SGroup 10482 3 syms_13;
     SGroup 11313 3 syms_30; SGroup 10505 4 syms_31; SGroup 12384 10 syms_32]);
   (56681, 32, [AGroup 5 1 [sym_ppDirective]; AGroup 14849 1 [anon_sym_LPAREN];
     AGroup 14853 1 [anon_sym_POUND]; AGroup 14859 1 [aux_sym_ppUsesBlock_token1];
     AGroup 14863 1 [sym_kHat]; AGroup 14865 1 [sym_ppFragmentExpr];
     AGroup 14867 1 [sym_identifier]; AGroup 14871 1 [sym_kSpecialize];
     AGroup 14873 1 [sym_kReference]; AGroup 14875 1 [sym_kArray]; AGroup 14881 1 [sym_kFile];
     AGroup 14889 1 [sym_kSet]; AGroup 14891 1 [sym_kString]; AGroup 15387 1 [sym_kClass];
     AGroup 15391 1 [sym_kPacked]; AGroup 15393 1 [sym_kRecord]; SGroup 3870 1 [sym__ppIf];
     SGroup 10605 1 [sym__subRangeUnary]; SGroup 10614 1 [sym__subRangeBinary];
     SGroup 10620 1 [sym__subRangeCall]; SGroup 12474 1 [sym_type]; AGroup 3 2 syms_5;
     AGroup 14851 2 syms_6; AGroup 14855 2 syms_7; AGroup 14857 2 syms_8; AGroup 14861 2 syms_9;
     AGroup 14883 2 syms_11; SGroup 10647 2 syms_12; SGroup 10482 3 syms_13;
     SGroup 11313 3 syms_30; SGroup 10505 4 syms_31; SGroup 12384 10 syms_32]);
   (56801, 5, [AGroup 5 1 [sym_ppDirective]; AGroup 3 2 syms_5; AGroup 15496 7 syms_34;
     AGroup 15403 18 syms_36; AGroup 15494 27 syms_72]);
   (56867, 32, [AGroup 5 1 [sym_ppDirective]; AGroup 14853 1 [anon_sym_POUND];
     AGroup 14859 1 [aux_sym_ppUsesBlock_token1]; AGroup 15405 1 [anon_sym_LPAREN];
     AGroup 15407 1 [sym_kHat]; AGroup 15409 1 [sym_ppFragmentExpr];
     AGroup 15411 1 [sym_identifier]; AGroup 15413 1 [sym_kSpecialize];
     AGroup 15415 1 [sym_kReference]; AGroup 15417 1 [sym_kArray]; AGroup 15419 1 [sym_kClass];
     AGroup 15423 1 [sym_kFile]; AGroup 15427 1 [sym_kPacked]; AGroup 15429 1 [sym_kRecord];
     AGroup 15431 1 [sym_kSet]; AGroup 15433 1 [sym_kString]; SGroup 3836 1 [sym__ppIf];
     SGroup 10605 1 [sym__subRangeUnary]; SGroup 10614 1 [sym__subRangeBinary];
     SGroup 10620 1 [sym__subRangeCall]; SGroup 12896 1 [sym_type]; AGroup 3 2 syms_5;
     AGroup 14851 2 syms_6; AGroup 14855 2 syms_7; AGroup 14857 2 syms_8; AGroup 14861 2 syms_9;
     AGroup 15425 2 syms_11; SGroup 10647 2 syms_12; SGroup 10482 3 syms_13;
     SGroup 11244 3 syms_30; SGroup 10538 4 syms_31; SGroup 12943 10 syms_32]);
   (56987, 32, [AGroup 5 1 [sym_ppDirective]; AGroup 14853 1 [anon_sym_POUND];
     AGroup 14859 1 [aux_sym_ppUsesBlock_token1]; AGroup 15405 1 [anon_sym_LPAREN];
     AGroup 15407 1 [sym_kHat]; AGroup 15409 1 [sym_ppFragmentExpr];
     AGroup 15411 1 [sym_identifier]; AGroup 15413 1 [sym_kSpecialize];
     AGroup 15415 1 [sym_kReference]; AGroup 15417 1 [sym_kArray]; AGroup 15419 1 [sym_kClass];
     AGroup 15423 1 [sym_kFile]; AGroup 15427 1 [sym_kPacked]; AGroup 15429 1 [sym_kRecord];
     AGroup 15431 1 [sym_kSet]; AGroup 15433 1 [sym_kString]; SGroup 3836 1 [sym__ppIf];
     SGroup 10605 1 [sym__subRangeUnary]; SGroup 10614 1 [sym__subRangeBinary];
     SGroup 10620 1 [sym__subRangeCall]; SGroup 12463 1 [sym_type]; AGroup 3 2 syms_5;
     AGroup 14851 2 syms_6; AGroup 14855 2 syms_7; AGroup 14857 2 syms_8; AGroup 14861 2 syms_9;
     AGroup 15425 2 syms_11; SGroup 10647 2 syms_12; SGroup 10482 3 syms_13;
     SGroup 11244 3 syms_30; SGroup 10538 4 syms_31; SGroup 12943 10 syms_32]);
   (57107, 32, [AGroup 5 1 [sym_ppDirective]; AGroup 14853 1 [anon_sym_POUND];
     AGroup 14859 1 [aux_sym_ppUsesBlock_token1]; AGroup 15405 1 [anon_sym_LPAREN];
     AGroup 15407 1 [sym_kHat]; AGroup 15409 1 [sym_ppFragmentExpr];
     AGroup 15411 1 [sym_identifier]; AGroup 15413 1 [sym_kSpecialize];
     AGroup 15415 1 [sym_kReference]; AGroup 15417 1 [sym_kArray]; AGroup 15419 1 [sym_kClass];
     AGroup 15423 1 [sym_kFile]; AGroup 15427 1 [sym_kPacked]; AGroup 15429 1 [sym_kRecord];
     AGroup 15431 1 [sym_kSet]; AGroup 15433 1 [sym_kString]; SGroup 3836 1 [sym__ppIf];
     SGroup 10605 1 [sym__subRangeUnary]; SGroup 10614 1 [sym__subRangeBinary];
     SGroup 10620 1 [sym__subRangeCall]; SGroup 12204 1 [sym_type]; AGroup 3 2 syms_5;
     AGroup 14851 2 syms_6; AGroup 14855 2 syms_7; AGroup 14857 2 syms_8; AGroup 14861 2 syms_9;
     AGroup 15425 2 syms_11; SGroup 10647 2 syms_12; SGroup 10482 3 syms_13;
     SGroup 11244 3 syms_30; SGroup 10538 4 syms_31; SGroup 12943 10 syms_32]);
   (57227, 32, [AGroup 5 1 [sym_ppDirective]; AGroup 14853 1 [anon_sym_POUND];
     AGroup 14859 1 [aux_sym_ppUsesBlock_token1]; AGroup 15405 1 [anon_sym_LPAREN];
     AGroup 15407 1 [sym_kHat]; AGroup 15409 1 [sym_ppFragmentExpr];
     AGroup 15411 1 [sym_identifier]; AGroup 15413 1 [sym_kSpecialize];
     AGroup 15415 1 [sym_kReference]; AGroup 15417 1 [sym_kArray]; AGroup 15419 1 [sym_kClass];
     AGroup 15423 1 [sym_kFile]; AGroup 15427 1 [sym_kPacked]; AGroup 15429 1 [sym_kRecord];
     AGroup 15431 1 [sym_kSet]; AGroup 15433 1 [sym_kString]; SGroup 3836 1 [sym__ppIf];
     SGroup 10605 1 [sym__subRangeUnary]; SGroup 10614 1 [sym__subRangeBinary];
     SGroup 10620 1 [sym__subRangeCall]; SGroup 12205 1 [sym_type]; AGroup 3 2 syms_5;
     AGroup 14851 2 syms_6; AGroup 14855 2 syms_7; AGroup 14857 2 syms_8; AGroup 14861 2 syms_9;
     AGroup 15425 2 syms_11; SGroup 10647 2 syms_12; SGroup 10482 3 syms_13;
     SGroup 11244 3 syms_30; SGroup 10538 4 syms_31; SGroup 12943 10 syms_32]);
   (57347, 32, [AGroup 5 1 [sym_ppDirective]; AGroup 14849 1 [anon_sym_LPAREN];
     AGroup 14853 1 [anon_sym_POUND]; AGroup 14859 1 [aux_sym_ppUsesBlock_token1];
     AGroup 14863 1 [sym_kHat]; AGroup 14865 1 [sym_ppFragmentExpr];
     AGroup 14867 1 [sym_identifier]; AGroup 14871 1 [sym_kSpecialize];
     AGroup 14873 1 [sym_kReference]; AGroup 14875 1 [sym_kArray]; AGroup 14881 1 [sym_kFile];
     AGroup 14889 1 [sym_kSet]; AGroup 14891 1 [sym_kString]; AGroup 15387 1 [sym_kClass];
     AGroup 15391 1 [sym_kPacked]; AGroup 15393 1 [sym_kRecord]; SGroup 3870 1 [sym__ppIf];
     SGroup 10605 1 [sym__subRangeUnary]; SGroup 10614 1 [sym__subRangeBinary];
     SGroup 10620 1 [sym__subRangeCall]; SGroup 13436 1 [sym_type]; AGroup 3 2 syms_5;
     AGroup 14851 2 syms_6; AGroup 14855 2 syms_7; AGroup 14857 2 syms_8; AGroup 14861 2 syms_9;
     AGroup 14883 2 syms_11; SGroup 10647 2 syms_12; SGroup 10482 3 syms_13;
     SGroup 11313 3 syms_30; SGroup 10505 4 syms_31; SGroup 12384 10 syms_32]);
   (57467, 32, [AGroup 5 1 [sym_ppDirective]; AGroup 14853 1 [anon_sym_POUND];
     AGroup 14859 1 [aux_sym_ppUsesBlock_token1]; AGroup 15405 1 [anon_sym_LPAREN];
     AGroup 15407 1 [sym_kHat]; AGroup 15409 1 [sym_ppFragmentExpr];
     AGroup 15411 1 [sym_identifier]; AGroup 15413 1 [sym_kSpecialize];
     AGroup 15415 1 [sym_kReference]; AGroup 15417 1 [sym_kArray]; AGroup 15419 1 [sym_kClass];
     AGroup 15423 1 [sym_kFile]; AGroup 15427 1 [sym_kPacked]; AGroup 15429 1 [sym_kRecord];
     AGroup 15431 1 [sym_kSet]; AGroup 15433 1 [sym_kString]; SGroup 3836 1 [sym__ppIf];
     SGroup 10605 1 [sym__subRangeUnary]; SGroup 10614 1 [sym__subRangeBinary];
     SGroup 10620 1 [sym__subRangeCall]; SGroup 12210 1 [sym_type]; AGroup 3 2 syms_5;
     AGroup 14851 2 syms_6; AGroup 14855 2 syms_7; AGroup 14857 2 syms_8; AGroup 14861 2 syms_9;
     AGroup 15425 2 syms_11; SGroup 10647 2 syms_12; SGroup 10482 3 syms_13;
     SGroup 11244 3 syms_30; SGroup 10538 4 syms_31; SGroup 12943 10 syms_32]);
   (57587, 32, [AGroup 5 1 [sym_ppDirective]; AGroup 14853 1 [anon_sym_POUND];
     AGroup 14859 1 [aux_sym_ppUsesBlock_token1]; AGroup 15405 1 [anon_sym_LPAREN];
     AGroup 15407 1 [sym_kHat]; AGroup 15409 1 [sym_ppFragmentExpr];
     AGroup 15411 1 [sym_identifier]; AGroup 15413 1 [sym_kSpecialize];
     AGroup 15415 1 [sym_kReference]; AGroup 15417 1 [sym_kArray]; AGroup 15419 1 [sym_kClass];
     AGroup 15423 1 [sym_kFile]; AGroup 15427 1 [sym_kPacked]; AGroup 15429 1 [sym_kRecord];
     AGroup 15431 1 [sym_kSet]; AGroup 15433 1 [sym_kString]; SGroup 3836 1 [sym__ppIf];
     SGroup 10605 1 [sym__subRangeUnary]; SGroup 10614 1 [sym__subRangeBinary];
     SGroup 10620 1 [sym__subRangeCall]; SGroup 12212 1 [sym_type]; AGroup 3 2 syms_5;
     AGroup 14851 2 syms_6; AGroup 14855 2 syms_7; AGroup 14857 2 syms_8; AGroup 14861 2 syms_9;
     AGroup 15425 2 syms_11; SGroup 10647 2 syms_12; SGroup 10482 3 syms_13;
     SGroup 11244 3 syms_30; SGroup 10538 4 syms_31; SGroup 12943 10 syms_32]);
   (57707, 32, [AGroup 5 1 [sym_ppDirective]; AGroup 14853 1 [anon_sym_POUND];
     AGroup 14859 1 [aux_sym_ppUsesBlock_token1]; AGroup 15405 1 [anon_sym_LPAREN];
     AGroup 15407 1 [sym_kHat]; AGroup 15409 1 [sym_ppFragmentExpr];
     AGroup 15411 1 [sym_identifier]; AGroup 15413 1 [sym_kSpecialize];
     AGroup 15415 1 [sym_kReference]; AGroup 15417 1 [sym_kArray]; AGroup 15419 1 [sym_kClass];
     AGroup 15423 1 [sym_kFile]; AGroup 15427 1 [sym_kPacked]; AGroup 15429 1 [sym_kRecord];
     AGroup 15431 1 [sym_kSet]; AGroup 15433 1 [sym_kString]; SGroup 3836 1 [sym__ppIf];
     SGroup 10605 1 [sym__subRangeUnary]; SGroup 10614 1 [sym__subRangeBinary];
     SGroup 10620 1 [sym__subRangeCall]; SGroup 12213 1 [sym_type]; AGroup 3 2 syms_5;
     AGroup 14851 2 syms_6; AGroup 14855 2 syms_7; AGroup 14857 2 syms_8; AGroup 14861 2 syms_9;
     AGroup 15425 2 syms_11; SGroup 10647 2 syms_12; SGroup 10482 3 syms_13;
     SGroup 11244 3 syms_30; SGroup 10538 4 syms_31; SGroup 12943 10 syms_32]);
   (57827, 32, [AGroup 5 1 [sym_ppDirective]; AGroup 14853 1 [anon_sym_POUND];
     AGroup 14859 1 [aux_sym_ppUsesBlock_token1]; AGroup 15405 1 [anon_sym_LPAREN];
     AGroup 15407 1 [sym_kHat]; AGroup 15409 1 [sym_ppFragmentExpr];
     AGroup 15411 1 [sym_identifier]; AGroup 15413 1 [sym_kSpecialize];
     AGroup 15415 1 [sym_kReference]; AGroup 15417 1 [sym_kArray]; AGroup 15419 1 [sym_kClass];
     AGroup 15423 1 [sym_kFile]; AGroup 15427 1 [sym_kPacked]; AGroup 15429 1 [sym_kRecord];
     AGroup 15431 1 [sym_kSet]; AGroup 15433 1 [sym_kString]; SGroup 3836 1 [sym__ppIf];
     SGroup 10605 1 [sym__subRangeUnary]; SGroup 10614 1 [sym__subRangeBinary];
     SGroup 10620 1 [sym__subRangeCall]; SGroup 12214 1 [sym_type]; AGroup 3 2 syms_5;
     AGroup 14851 2 syms_6; AGroup 14855 2 syms_7; AGroup 14857 2 syms_8; AGroup 14861 2 syms_9;
     AGroup 15425 2 syms_11; SGroup 10647 2 syms_12; SGroup 10482 3 syms_13;
     SGroup 11244 3 syms_30; SGroup 10538 4 syms_31; SGroup 12943 10 syms_32]);
   (57947, 32, [AGroup 5 1 [sym_ppDirective]; AGroup 14849 1 [anon_sym_LPAREN];
     AGroup 14853 1 [anon_sym_POUND]; AGroup 14859 1 [aux_sym_ppUsesBlock_token1];
     AGroup 14863 1 [sym_kHat]; AGroup 14865 1 [sym_ppFragmentExpr];
     AGroup 14867 1 [sym_identifier]; AGroup 14871 1 [sym_kSpecialize];
     AGroup 14873 1 [sym_kReference]; AGroup 14875 1 [sym_kArray]; AGroup 14881 1 [sym_kFile];
     AGroup 14889 1 [sym_kSet]; AGroup 14891 1 [sym_kString]; AGroup 15387 1 [sym_kClass];
     AGroup 15391 1 [sym_kPacked]; AGroup 15393 1 [sym_kRecord]; SGroup 3870 1 [sym__ppIf];
     SGroup 10605 1 [sym__subRangeUnary]; SGroup 10614 1 [sym__subRangeBinary];
     SGroup 10620 1 [sym__subRangeCall]; SGroup 12555 1 [sym_type]; AGroup 3 2 syms_5;
     AGroup 14851 2 syms_6; AGroup 14855 2 syms_7; AGroup 14857 2 syms_8; AGroup 14861 2 syms_9;
     AGroup 14883 2 syms_11; SGroup 10647 2 syms_12; SGroup 10482 3 syms_13;
     SGroup 11313 3 syms_30; SGroup 10505 4 syms_31; SGroup 12384 10 syms_32]);
   (58067, 15, [AGroup 5 1 [sym_ppDirective]; AGroup 11641 1 [sym_kDispId]; AGroup 11643 1 [sym_kPublic];
     AGroup 11645 1 [sym_kMessage]; AGroup 11647 1 [sym_kDeprecated];
     AGroup 11649 1 [sym_kExport]; AGroup 11651 1 [sym_kAlias];
     AGroup 15329 1 [aux_sym_ppUsesBlock_token1]; SGroup 2857 1 [sym__ppIf];
     SGroup 3326 1 [aux_sym__procAttributesPp_repeat1]; SGroup 4086 1 [sym__procAttributesPp];
     SGroup 14440 1 [sym_procAttribute]; AGroup 3 2 syms_5; AGroup 16789 2 syms_44;
     AGroup 1016 39 syms_33]);
   (58153, 24, [AGroup 5 1 [sym_ppDirective]; AGroup 15647 1 [anon_sym_LBRACK];
     AGroup 15649 1 [anon_sym_LPAREN]; AGroup 15653 1 [anon_sym_POUND];
     AGroup 15665 1 [sym_identifier]; AGroup 15667 1 [sym_kSpecialize];
     AGroup 15673 1 [sym_kInherited]; AGroup 15675 1 [sym_kString]; AGroup 15755 1 [sym_kIf];
     SGroup 3350 1 [aux_sym_recInitializer_repeat1]; SGroup 13485 1 [sym_recInitializerField];
     AGroup 3 2 syms_5; AGroup 15651 2 syms_6; AGroup 15655 2 syms_7; AGroup 15657 2 syms_8;
     AGroup 15669 2 syms_11; AGroup 15747 2 syms_9; AGroup 15749 2 syms_10;
     SGroup 8129 2 syms_12; SGroup 7100 3 syms_13; SGroup 13515 3 syms_56;
     AGroup 15751 4 syms_57; SGroup 9426 4 syms_14; SGroup 8464 14 syms_17]);
   (58257, 32, [AGroup 5 1 [sym_ppDirective]; AGroup 14853 1 [anon_sym_POUND];
     AGroup 14859 1 [aux_sym_ppUsesBlock_token1]; AGroup 15405 1 [anon_sym_LPAREN];
     AGroup 15407 1 [sym_kHat]; AGroup 15409 1 [sym_ppFragmentExpr];
     AGroup 15411 1 [sym_identifier]; AGroup 15413 1 [sym_kSpecialize];
     AGroup 15415 1 [sym_kReference]; AGroup 15417 1 [sym_kArray]; AGroup 15419 1 [sym_kClass];
     AGroup 15423 1 [sym_kFile]; AGroup 15427 1 [sym_kPacked]; AGroup 15429 1 [sym_kRecord];
     AGroup 15431 1 [sym_kSet]; AGroup 15433 1 [sym_kString]; SGroup 3836 1 [sym__ppIf];
     SGroup 10605 1 [sym__subRangeUnary]; SGroup 10614 1 [sym__subRangeBinary];
     SGroup 10620 1 [sym__subRangeCall]; SGroup 12226 1 [sym_type]; AGroup 3 2 syms_5;
     AGroup 14851 2 syms_6; AGroup 14855 2 syms_7; AGroup 14857 2 syms_8; AGroup 14861 2 syms_9;
     AGroup 15425 2 syms_11; SGroup 10647 2 syms_12; SGroup 10482 3 syms_13;
     SGroup 11244 3 syms_30; SGroup 10538 4 syms_31; SGroup 12943 10 syms_32]);
   (58377, 32, [AGroup 5 1 [sym_ppDirective]; AGroup 14853 1 [anon_sym_POUND];
     AGroup 14859 1 [aux_sym_ppUsesBlock_token1]; AGroup 15405 1 [anon_sym_LPAREN];
     AGroup 15407 1 [sym_kHat]; AGroup 15409 1 [sym_ppFragmentExpr];
     AGroup 15411 1 [sym_identifier]; AGroup 15413 1 [sym_kSpecialize];
     AGroup 15415 1 [sym_kReference]; AGroup 15417 1 [sym_kArray]; AGroup 15419 1 [sym_kClass];
     AGroup 15423 1 [sym_kFile]; AGroup 15427 1 [sym_kPacked]; AGroup 15429 1 [sym_kRecord];
     AGroup 15431 1 [sym_kSet]; AGroup 15433 1 [sym_kString]; SGroup 3836 1 [sym__ppIf];
     SGroup 10605 1 [sym__subRangeUnary]; SGroup 10614 1 [sym__subRangeBinary];
     SGroup 10620 1 [sym__subRangeCall]; SGroup 12227 1 [sym_type]; AGroup 3 2 syms_5;
     AGroup 14851 2 syms_6; AGroup 14855 2 syms_7; AGroup 14857 2 syms_8; AGroup 14861 2 syms_9;
     AGroup 15425 2 syms_11; SGroup 10647 2 syms_12; SGroup 10482 3 syms_13;
     SGroup 11244 3 syms_30; SGroup 10538 4 syms_31; SGroup 12943 10 syms_32]);
   (58497, 32, [AGroup 5 1 [sym_ppDirective]; AGroup 14849 1 [anon_sym_LPAREN];
     AGroup 14853 1 [anon_sym_POUND]; AGroup 14859 1 [aux_sym_ppUsesBlock_token1];
     AGroup 14863 1 [sym_kHat]; AGroup 14865 1 [sym_ppFragmentExpr];
     AGroup 14867 1 [sym_identifier]; AGroup 14871 1 [sym_kSpecialize];
     AGroup 14873 1 [sym_kReference]; AGroup 14875 1 [sym_kArray]; AGroup 14881 1 [sym_kFile];
     AGroup 14889 1 [sym_kSet]; AGroup 14891 1 [sym_kString]; AGroup 15387 1 [sym_kClass];
     AGroup 15391 1 [sym_kPacked]; AGroup 15393 1 [sym_kRecord]; SGroup 3870 1 [sym__ppIf];
     SGroup 10605 1 [sym__subRangeUnary]; SGroup 10614 1 [sym__subRangeBinary];
     SGroup 10620 1 [sym__subRangeCall]; SGroup 12820 1 [sym_type]; AGroup 3 2 syms_5;
     AGroup 14851 2 syms_6; AGroup 14855 2 syms_7; AGroup 14857 2 syms_8; AGroup 14861 2 syms_9;
     AGroup 14883 2 syms_11; SGroup 10647 2 syms_12; SGroup 10482 3 syms_13;
     SGroup 11313 3 syms_30; SGroup 10505 4 syms_31; SGroup 12384 10 syms_32]);
   (58617, 15, [AGroup 5 1 [sym_ppDirective]; AGroup 11641 1 [sym_kDispId]; AGroup 11643 1 [sym_kPublic];
     AGroup 11645 1 [sym_kMessage]; AGroup 11647 1 [sym_kDeprecated];
     AGroup 11649 1 [sym_kExport]; AGroup 11651 1 [sym_kAlias];
     AGroup 15329 1 [aux_sym_ppUsesBlock_token1]; SGroup 2857 1 [sym__ppIf];
     SGroup 3341 1 [aux_sym__procAttributesPp_repeat1]; SGroup 4086 1 [sym__procAttributesPp];
     SGroup 14440 1 [sym_procAttribute]; AGroup 3 2 syms_5; AGroup 16791 2 syms_44;
     AGroup 1016 39 syms_33]);
   (58703, 32, [AGroup 5 1 [sym_ppDirective]; AGroup 14853 1 [anon_sym_POUND];
     AGroup 14859 1 [aux_sym_ppUsesBlock_token1]; AGroup 15299 1 [anon_sym_LPAREN];
     AGroup 15301 1 [sym_kHat]; AGroup 15303 1 [sym_ppFragmentExpr];
     AGroup 15305 1 [sym_identifier]; AGroup 15307 1 [sym_kSpecialize];
     AGroup 15309 1 [sym_kReference]; AGroup 15311 1 [sym_kArray]; AGroup 15313 1 [sym_kClass];
     AGroup 15317 1 [sym_kFile]; AGroup 15321 1 [sym_kPacked]; AGroup 15323 1 [sym_kRecord];
     AGroup 15325 1 [sym_kSet]; AGroup 15327 1 [sym_kString]; SGroup 3815 1 [sym__ppIf];
     SGroup 10605 1 [sym__subRangeUnary]; SGroup 10614 1 [sym__subRangeBinary];
     SGroup 10620 1 [sym__subRangeCall]; SGroup 13093 1 [sym_type]; AGroup 3 2 syms_5;
     AGroup 14851 2 syms_6; AGroup 14855 2 syms_7; AGroup 14857 2 syms_8; AGroup 14861 2 syms_9;
     AGroup 15319 2 syms_11; SGroup 10647 2 syms_12; SGroup 10482 3 syms_13;
     SGroup 11297 3 syms_30; SGroup 10560 4 syms_31; SGroup 13955 10 syms_32]);
   (58823, 32, [AGroup 5 1 [sym_ppDirective]; AGroup 14849 1 [anon_sym_LPAREN];
     AGroup 14853 1 [anon_sym_POUND]; AGroup 14859 1 [aux_sym_ppUsesBlock_token1];
     AGroup 14863 1 [sym_kHat]; AGroup 14865 1 [sym_ppFragmentExpr];
     AGroup 14867 1 [sym_identifier]; AGroup 14871 1 [sym_kSpecialize];
     AGroup 14873 1 [sym_kReference]; AGroup 14875 1 [sym_kArray]; AGroup 14881 1 [sym_kFile];
     AGroup 14889 1 [sym_kSet]; AGroup 14891 1 [sym_kString]; AGroup 15387 1 [sym_kClass];
     AGroup 15391 1 [sym_kPacked]; AGroup 15393 1 [sym_kRecord]; SGroup 3870 1 [sym__ppIf];
     SGroup 10605 1 [sym__subRangeUnary]; SGroup 10614 1 [sym__subRangeBinary];
     SGroup 10620 1 [sym__subRangeCall]; SGroup 12563 1 [sym_type]; AGroup 3 2 syms_5;
     AGroup 14851 2 syms_6; AGroup 14855 2 syms_7; AGroup 14857 2 syms_8; AGroup 14861 2 syms_9;
     AGroup 14883 2 syms_11; SGroup 10647 2 syms_12; SGroup 10482 3 syms_13;
     SGroup 11313 3 syms_30; SGroup 10505 4 syms_31; SGroup 12384 10 syms_32]);
   (58943, 25, [AGroup 5 1 [sym_ppDirective]; AGroup 15011 1 [anon_sym_LBRACK];
     AGroup 15013 1 [anon_sym_LPAREN]; AGroup 15017 1 [anon_sym_POUND];
     AGroup 15029 1 [sym_kSpecialize]; AGroup 15035 1 [sym_kIf]; AGroup 15037 1 [sym_kInherited];
     AGroup 15039 1 [sym_kString]; SGroup 3205 1 [aux_sym_declVariant_repeat1];
     SGroup 3889 1 [aux_sym_caseLabel_repeat1]; SGroup 13268 1 [sym_declVariantClause];
     SGroup 13487 1 [sym_range]; SGroup 15709 1 [sym_caseLabel]; AGroup 3 2 syms_5;
     AGroup 15015 2 syms_6; AGroup 15019 2 syms_7; AGroup 15021 2 syms_8; AGroup 15023 2 syms_9;
     AGroup 15025 2 syms_10; AGroup 15033 2 syms_11; SGroup 8466 2 syms_12;
     SGroup 7201 3 syms_13; SGroup 9422 4 syms_14; AGroup 15027 5 syms_15; SGroup 7990 14 syms_17]);
   (59049, 21, [AGroup 5 1 [sym_ppDirective]; AGroup 15647 1 [anon_sym_LBRACK];
     AGroup 15653 1 [anon_sym_POUND]; AGroup 15667 1 [sym_kSpecialize];
     AGroup 15673 1 [sym_kInherited]; AGroup 15675 1 [sym_kString];
     AGroup 15745 1 [anon_sym_LPAREN]; AGroup 15755 1 [sym_kIf]; AGroup 3 2 syms_5;
     AGroup 15651 2 syms_6; AGroup 15655 2 syms_7; AGroup 15657 2 syms_8; AGroup 15669 2 syms_11;
     AGroup 15747 2 syms_9; AGroup 15749 2 syms_10; SGroup 8129 2 syms_12; SGroup 7100 3 syms_13;
     SGroup 9406 4 syms_14; AGroup 14747 5 syms_75; AGroup 15751 5 syms_15;
     SGroup 8464 14 syms_17]);
   (59147, 32, [AGroup 5 1 [sym_ppDirective]; AGroup 14853 1 [anon_sym_POUND];
     AGroup 14859 1 [aux_sym_ppUsesBlock_token1]; AGroup 15405 1 [anon_sym_LPAREN];
     AGroup 15407 1 [sym_kHat]; AGroup 15409 1 [sym_ppFragmentExpr];
     AGroup 15411 1 [sym_identifier]; AGroup 15413 1 [sym_kSpecialize];
     AGroup 15415 1 [sym_kReference]; AGroup 15417 1 [sym_kArray]; AGroup 15419 1 [sym_kClass];
     AGroup 15423 1 [sym_kFile]; AGroup 15427 1 [sym_kPacked]; AGroup 15429 1 [sym_kRecord];
     AGroup 15431 1 [sym_kSet]; AGroup 15433 1 [sym_kString]; SGroup 3836 1 [sym__ppIf];
     SGroup 10605 1 [sym__subRangeUnary]; SGroup 10614 1 [sym__subRangeBinary];
     SGroup 10620 1 [sym__subRangeCall]; SGroup 12257 1 [sym_type]; AGroup 3 2 syms_5;
     AGroup 14851 2 syms_6; AGroup 14855 2 syms_7; AGroup 14857 2 syms_8; AGroup 14861 2 syms_9;
     AGroup 15425 2 syms_11; SGroup 10647 2 syms_12; SGroup 10482 3 syms_13;
     SGroup 11244 3 syms_30; SGroup 10538 4 syms_31; SGroup 12943 10 syms_32]);
   (59267, 32, [AGroup 5 1 [sym_ppDirective]; AGroup 14853 1 [anon_sym_POUND];
     AGroup 14859 1 [aux_sym_ppUsesBlock_token1]; AGroup 15405 1 [anon_sym_LPAREN];
     AGroup 15407 1 [sym_kHat]; AGroup 15409 1 [sym_ppFragmentExpr];
     AGroup 15411 1 [sym_identifier]; AGroup 15413 1 [sym_kSpecialize];
     AGroup 15415 1 [sym_kReference]; AGroup 15417 1 [sym_kArray]; AGroup 15419 1 [sym_kClass];
     AGroup 15423 1 [sym_kFile]; AGroup 15427 1 [sym_kPacked]; AGroup 15429 1 [sym_kRecord];
     AGroup 15431 1 [sym_kSet]; AGroup 15433 1 [sym_kString]; SGroup 3836 1 [sym__ppIf];
     SGroup 10605 1 [sym__subRangeUnary]; SGroup 10614 1 [sym__subRangeBinary];
     SGroup 10620 1 [sym__subRangeCall]; SGroup 12258 1 [sym_type]; AGroup 3 2 syms_5;
     AGroup 14851 2 syms_6; AGroup 14855 2 syms_7; AGroup 14857 2 syms_8; AGroup 14861 2 syms_9;
     AGroup 15425 2 syms_11; SGroup 10647 2 syms_12; SGroup 10482 3 syms_13;
     SGroup 11244 3 syms_30; SGroup 10538 4 syms_31; SGroup 12943 10 syms_32]);
   (59387, 32, [AGroup 5 1 [sym_ppDirective]; AGroup 14849 1 [anon_sym_LPAREN];
     AGroup 14853 1 [anon_sym_POUND]; AGroup 14859 1 [aux_sym_ppUsesBlock_token1];
     AGroup 14863 1 [sym_kHat]; AGroup 14865 1 [sym_ppFragmentExpr];
     AGroup 14867 1 [sym_identifier]; AGroup 14871 1 [sym_kSpecialize];
     AGroup 14873 1 [sym_kReference]; AGroup 14875 1 [sym_kArray]; AGroup 14881 1 [sym_kFile];
     AGroup 14889 1 [sym_kSet]; AGroup 14891 1 [sym_kString]; AGroup 15387 1 [sym_kClass];
     AGroup 15391 1 [sym_kPacked]; AGroup 15393 1 [sym_kRecord]; SGroup 3870 1 [sym__ppIf];
     SGroup 10605 1 [sym__subRangeUnary]; SGroup 10614 1 [sym__subRangeBinary];
     SGroup 10620 1 [sym__subRangeCall]; SGroup 13625 1 [sym_type]; AGroup 3 2 syms_5;
     AGroup 14851 2 syms_6; AGroup 14855 2 syms_7; AGroup 14857 2 syms_8; AGroup 14861 2 syms_9;
     AGroup 14883 2 syms_11; SGroup 10647 2 syms_12; SGroup 10482 3 syms_13;
     SGroup 11313 3 syms_30; SGroup 10505 4 syms_31; SGroup 12384 10 syms_32]);
   (59507, 32, [AGroup 5 1 [sym_ppDirective]; AGroup 14853 1 [anon_sym_POUND];
     AGroup 14859 1 [aux_sym_ppUsesBlock_token1]; AGroup 15405 1 [anon_sym_LPAREN];
     AGroup 15407 1 [sym_kHat]; AGroup 15409 1 [sym_ppFragmentExpr];
     AGroup 15411 1 [sym_identifier]; AGroup 15413 1 [sym_kSpecialize];
     AGroup 15415 1 [sym_kReference]; AGroup 15417 1 [sym_kArray]; AGroup 15419 1 [sym_kClass];
     AGroup 15423 1 [sym_kFile]; AGroup 15427 1 [sym_kPacked]; AGroup 15429 1 [sym_kRecord];
     AGroup 15431 1 [sym_kSet]; AGroup 15433 1 [sym_kString]; SGroup 3836 1 [sym__ppIf];
     SGroup 10605 1 [sym__subRangeUnary]; SGroup 10614 1 [sym__subRangeBinary];
     SGroup 10620 1 [sym__subRangeCall]; SGroup 12268 1 [sym_type]; AGroup 3 2 syms_5;
     AGroup 14851 2 syms_6; AGroup 14855 2 syms_7; AGroup 14857 2 syms_8; AGroup 14861 2 syms_9;
     AGroup 15425 2 syms_11; SGroup 10647 2 syms_12; SGroup 10482 3 syms_13;
     SGroup 11244 3 syms_30; SGroup 10538 4 syms_31; SGroup 12943 10 syms_32]);
   (59627, 32, [AGroup 5 1 [sym_ppDirective]; AGroup 14853 1 [anon_sym_POUND];
     AGroup 14859 1 [aux_sym_ppUsesBlock_token1]; AGroup 15405 1 [anon_sym_LPAREN];
     AGroup 15407 1 [sym_kHat]; AGroup 15409 1 [sym_ppFragmentExpr];
     AGroup 15411 1 [sym_identifier]; AGroup 15413 1 [sym_kSpecialize];
     AGroup 15415 1 [sym_kReference]; AGroup 15417 1 [sym_kArray]; AGroup 15419 1 [sym_kClass];
     AGroup 15423 1 [sym_kFile]; AGroup 15427 1 [sym_kPacked]; AGroup 15429 1 [sym_kRecord];
     AGroup 15431 1 [sym_kSet]; AGroup 15433 1 [sym_kString]; SGroup 3836 1 [sym__ppIf];
     SGroup 10605 1 [sym__subRangeUnary]; SGroup 10614 1 [sym__subRangeBinary];
     SGroup 10620 1 [sym__subRangeCall]; SGroup 12269 1 [sym_type]; AGroup 3 2 syms_5;
     AGroup 14851 2 syms_6; AGroup 14855 2 syms_7; AGroup 14857 2 syms_8; AGroup 14861 2 syms_9;
     AGroup 15425 2 syms_11; SGroup 10647 2 syms_12; SGroup 10482 3 syms_13;
     SGroup 11244 3 syms_30; SGroup 10538 4 syms_31; SGroup 12943 10 syms_32]);
   (59747, 32, [AGroup 5 1 [sym_ppDirective]; AGroup 14853 1 [anon_sym_POUND];
     AGroup 14859 1 [aux_sym_ppUsesBlock_token1]; AGroup 15405 1 [anon_sym_LPAREN];
     AGroup 15407 1 [sym_kHat]; AGroup 15409 1 [sym_ppFragmentExpr];
     AGroup 15411 1 [sym_identifier]; AGroup 15413 1 [sym_kSpecialize];
     AGroup 15415 1 [sym_kReference]; AGroup 15417 1 [sym_kArray]; AGroup 15419 1 [sym_kClass];
     AGroup 15423 1 [sym_kFile]; AGroup 15427 1 [sym_kPacked]; AGroup 15429 1 [sym_kRecord];
     AGroup 15431 1 [sym_kSet]; AGroup 15433 1 [sym_kString]; SGroup 3836 1 [sym__ppIf];
     SGroup 10605 1 [sym__subRangeUnary]; SGroup 10614 1 [sym__subRangeBinary];
     SGroup 10620 1 [sym__subRangeCall]; SGroup 12270 1 [sym_type]; AGroup 3 2 syms_5;
     AGroup 14851 2 syms_6; AGroup 14855 2 syms_7; AGroup 14857 2 syms_8; AGroup 14861 2 syms_9;
     AGroup 15425 2 syms_11; SGroup 10647 2 syms_12; SGroup 10482 3 syms_13;
     SGroup 11244 3 syms_30; SGroup 10538 4 syms_31; SGroup 12943 10 syms_32]);
   (59867, 32, [AGroup 5 1 [sym_ppDirective]; AGroup 14853 1 [anon_sym_POUND];
     AGroup 14859 1 [aux_sym_ppUsesBlock_token1]; AGroup 15405 1 [anon_sym_LPAREN];
     AGroup 15407 1 [sym_kHat]; AGroup 15409 1 [sym_ppFragmentExpr];
     AGroup 15411 1 [sym_identifier]; AGroup 15413 1 [sym_kSpecialize];
     AGroup 15415 1 [sym_kReference]; AGroup 15417 1 [sym_kArray]; AGroup 15419 1 [sym_kClass];
     AGroup 15423 1 [sym_kFile]; AGroup 15427 1 [sym_kPacked]; AGroup 15429 1 [sym_kRecord];
     AGroup 15431 1 [sym_kSet]; AGroup 15433 1 [sym_kString]; SGroup 3836 1 [sym__ppIf];
     SGroup 10605 1 [sym__subRangeUnary]; SGroup 10614 1 [sym__subRangeBinary];
     SGroup 10620 1 [sym__subRangeCall]; SGroup 12271 1 [sym_type]; AGroup 3 2 syms_5;
     AGroup 14851 2 syms_6; AGroup 14855 2 syms_7; AGroup 14857 2 syms_8; AGroup 14861 2 syms_9;
     AGroup 15425 2 syms_11; SGroup 10647 2 syms_12; SGroup 10482 3 syms_13;
     SGroup 11244 3 syms_30; SGroup 10538 4 syms_31; SGroup 12943 10 syms_32]);
   (59987, 24, [AGroup 5 1 [sym_ppDirective]; AGroup 15647 1 [anon_sym_LBRACK];
     AGroup 15649 1 [anon_sym_LPAREN]; AGroup 15653 1 [anon_sym_POUND];
     AGroup 15665 1 [sym_identifier]; AGroup 15667 1 [sym_kSpecialize];
     AGroup 15673 1 [sym_kInherited]; AGroup 15675 1 [sym_kString]; AGroup 15755 1 [sym_kIf];
     SGroup 3350 1 [aux_sym_recInitializer_repeat1]; SGroup 13653 1 [sym_recInitializerField];
     AGroup 3 2 syms_5; AGroup 15651 2 syms_6; AGroup 15655 2 syms_7; AGroup 15657 2 syms_8;
     AGroup 15669 2 syms_11; AGroup 15747 2 syms_9; AGroup 15749 2 syms_10;
     SGroup 8129 2 syms_12; SGroup 7100 3 syms_13; SGroup 13515 3 syms_56;
     AGroup 15751 4 syms_57; SGroup 9426 4 syms_14; SGroup 8464 14 syms_17]);
   (60091, 32, [AGroup 5 1 [sym_ppDirective]; AGroup 14853 1 [anon_sym_POUND];
     AGroup 14859 1 [aux_sym_ppUsesBlock_token1]; AGroup 15405 1 [anon_sym_LPAREN];
     AGroup 15407 1 [sym_kHat]; AGroup 15409 1 [sym_ppFragmentExpr];
     AGroup 15411 1 [sym_identifier]; AGroup 15413 1 [sym_kSpecialize];
     AGroup 15415 1 [sym_kReference]; AGroup 15417 1 [sym_kArray]; AGroup 15419 1 [sym_kClass];
     AGroup 15423 1 [sym_kFile]; AGroup 15427 1 [sym_kPacked]; AGroup 15429 1 [sym_kRecord];
     AGroup 15431 1 [sym_kSet]; AGroup 15433 1 [sym_kString]; SGroup 3836 1 [sym__ppIf];
     SGroup 10605 1 [sym__subRangeUnary]; SGroup 10614 1 [sym__subRangeBinary];
     SGroup 10620 1 [sym__subRangeCall]; SGroup 12278 1 [sym_type]; AGroup 3 2 syms_5;
     AGroup 14851 2 syms_6; AGroup 14855 2 syms_7; AGroup 14857 2 syms_8; AGroup 14861 2 syms_9;
     AGroup 15425 2 syms_11; SGroup 10647 2 syms_12; SGroup 10482 3 syms_13;
     SGroup 11244 3 syms_30; SGroup 10538 4 syms_31; SGroup 12943 10 syms_32]);
   (60211, 32, [AGroup 5 1 [sym_ppDirective]; AGroup 14853 1 [anon_sym_POUND];
     AGroup 14859 1 [aux_sym_ppUsesBlock_token1]; AGroup 15405 1 [anon_sym_LPAREN];
     AGroup 15407 1 [sym_kHat]; AGroup 15409 1 [sym_ppFragmentExpr];
     AGroup 15411 1 [sym_identifier]; AGroup 15413 1 [sym_kSpecialize];
     AGroup 15415 1 [sym_kReference]; AGroup 15417 1 [sym_kArray]; AGroup 15419 1 [sym_kClass];
     AGroup 15423 1 [sym_kFile]; AGroup 15427 1 [sym_kPacked]; AGroup 15429 1 [sym_kRecord];
     AGroup 15431 1 [sym_kSet]; AGroup 15433 1 [sym_kString]; SGroup 3836 1 [sym__ppIf];
     SGroup 10605 1 [sym__subRangeUnary]; SGroup 10614 1 [sym__subRangeBinary];
     SGroup 10620 1 [sym__subRangeCall]; SGroup 12279 1 [sym_type]; AGroup 3 2 syms_5;
     AGroup 14851 2 syms_6; AGroup 14855 2 syms_7; AGroup 14857 2 syms_8; AGroup 14861 2 syms_9;
     AGroup 15425 2 syms_11; SGroup 10647 2 syms_12; SGroup 10482 3 syms_13;
     SGroup 11244 3 syms_30; SGroup 10538 4 syms_31; SGroup 12943 10 syms_32]);
   (60331, 15, [AGroup 5 1 [sym_ppDirective]; AGroup 16793 1 [aux_sym_ppUsesBlock_token1];
     AGroup 16801 1 [sym_kDispId]; AGroup 16804 1 [sym_kPublic]; AGroup 16807 1 [sym_kMessage];
     AGroup 16810 1 [sym_kDeprecated]; AGroup 16813 1 [sym_kExport]; AGroup 16816 1 [sym_kAlias];
     SGroup 2857 1 [sym__ppIf]; SGroup 3341 1 [aux_sym__procAttributesPp_repeat1];
     SGroup 4086 1 [sym__procAttributesPp]; SGroup 14440 1 [sym_procAttribute];
     AGroup 3 2 syms_5; AGroup 16796 2 syms_44; AGroup 16798 39 syms_33]);
   (60417, 21, [AGroup 5 1 [sym_ppDirective]; AGroup 15647 1 [anon_sym_LBRACK];
     AGroup 15653 1 [anon_sym_POUND]; AGroup 15667 1 [sym_kSpecialize];
     AGroup 15673 1 [sym_kInherited]; AGroup 15675 1 [sym_kString];
     AGroup 15745 1 [anon_sym_LPAREN]; AGroup 15755 1 [sym_kIf]; AGroup 3 2 syms_5;
     AGroup 15651 2 syms_6; AGroup 15655 2 syms_7; AGroup 15657 2 syms_8; AGroup 15669 2 syms_11;
     AGroup 15747 2 syms_9; AGroup 15749 2 syms_10; SGroup 8129 2 syms_12; SGroup 7100 3 syms_13;
     SGroup 9391 4 syms_14; AGroup 14765 5 syms_75; AGroup 15751 5 syms_15;
     SGroup 8464 14 syms_17]);
   (60515, 32, [AGroup 5 1 [sym_ppDirective]; AGroup 14849 1 [anon_sym_LPAREN];
     AGroup 14853 1 [anon_sym_POUND]; AGroup 14859 1 [aux_sym_ppUsesBlock_token1];
     AGroup 14863 1 [sym_kHat]; AGroup 14865 1 [sym_ppFragmentExpr];
     AGroup 14867 1 [sym_identifier]; AGroup 14871 1 [sym_kSpecialize];
     AGroup 14873 1 [sym_kReference]; AGroup 14875 1 [sym_kArray]; AGroup 14881 1 [sym_kFile];
     AGroup 14889 1 [sym_kSet]; AGroup 14891 1 [sym_kString]; AGroup 15387 1 [sym_kClass];
     AGroup 15391 1 [sym_kPacked]; AGroup 15393 1 [sym_kRecord]; SGroup 3870 1 [sym__ppIf];
     SGroup 10605 1 [sym__subRangeUnary]; SGroup 10614 1 [sym__subRangeBinary];
     SGroup 10620 1 [sym__subRangeCall]; SGroup 12851 1 [sym_type]; AGroup 3 2 syms_5;
     AGroup 14851 2 syms_6; AGroup 14855 2 syms_7; AGroup 14857 2 syms_8; AGroup 14861 2 syms_9;
     AGroup 14883 2 syms_11; SGroup 10647 2 syms_12; SGroup 10482 3 syms_13;
     SGroup 11313 3 syms_30; SGroup 10505 4 syms_31; SGroup 12384 10 syms_32]);
   (60635, 4, [AGroup 5 1 [sym_ppDirective]; AGroup 3 2 syms_5; AGroup 15295 7 syms_34;
     AGroup 15293 45 syms_76]);
   (60699, 32, [AGroup 5 1 [sym_ppDirective]; AGroup 14849 1 [anon_sym_LPAREN];
     AGroup 14853 1 [anon_sym_POUND]; AGroup 14859 1 [aux_sym_ppUsesBlock_token1];
     AGroup 14863 1 [sym_kHat]; AGroup 14865 1 [sym_ppFragmentExpr];
     AGroup 14867 1 [sym_identifier]; AGroup 14871 1 [sym_kSpecialize];
     AGroup 14873 1 [sym_kReference]; AGroup 14875 1 [sym_kArray]; AGroup 14881 1 [sym_kFile];
     AGroup 14889 1 [sym_kSet]; AGroup 14891 1 [sym_kString]; AGroup 15387 1 [sym_kClass];
     AGroup 15391 1 [sym_kPacked]; AGroup 15393 1 [sym_kRecord]; SGroup 3870 1 [sym__ppIf];
     SGroup 10605 1 [sym__subRangeUnary]; SGroup 10614 1 [sym__subRangeBinary];
     SGroup 10620 1 [sym__subRangeCall]; SGroup 13913 1 [sym_type]; AGroup 3 2 syms_5;
     AGroup 14851 2 syms_6; AGroup 14855 2 syms_7; AGroup 14857 2 syms_8; AGroup 14861 2 syms_9;
     AGroup 14883 2 syms_11; SGroup 10647 2 syms_12; SGroup 10482 3 syms_13;
     SGroup 11313 3 syms_30; SGroup 10505 4 syms_31; SGroup 12384 10 syms_32]);
   (60819, 24, [AGroup 5 1 [sym_ppDirective]; AGroup 15647 1 [anon_sym_LBRACK];
     AGroup 15649 1 [anon_sym_LPAREN]; AGroup 15653 1 [anon_sym_POUND];
     AGroup 15665 1 [sym_identifier]; AGroup 15667 1 [sym_kSpecialize];
     AGroup 15673 1 [sym_kInherited]; AGroup 15675 1 [sym_kString]; AGroup 15755 1 [sym_kIf];
     SGroup 3350 1 [aux_sym_recInitializer_repeat1]; SGroup 13961 1 [sym_recInitializerField];
     AGroup 3 2 syms_5; AGroup 15651 2 syms_6; AGroup 15655 2 syms_7; AGroup 15657 2 syms_8;
     AGroup 15669 2 syms_11; AGroup 15747 2 syms_9; AGroup 15749 2 syms_10;
     SGroup 8129 2 syms_12; SGroup 7100 3 syms_13; SGroup 13515 3 syms_56;
     AGroup 15751 4 syms_57; SGroup 9426 4 syms_14; SGroup 8464 14 syms_17]);
   (60923, 32, [AGroup 5 1 [sym_ppDirective]; AGroup 14849 1 [anon_sym_LPAREN];
     AGroup 14853 1 [anon_sym_POUND]; AGroup 14859 1 [aux_sym_ppUsesBlock_token1];
     AGroup 14863 1 [sym_kHat]; AGroup 14865 1 [sym_ppFragmentExpr];
     AGroup 14867 1 [sym_identifier]; AGroup 14871 1 [sym_kSpecialize];
     AGroup 14873 1 [sym_kReference]; AGroup 14875 1 [sym_kArray]; AGroup 14881 1 [sym_kFile];
     AGroup 14889 1 [sym_kSet]; AGroup 14891 1 [sym_kString]; AGroup 15387 1 [sym_kClass];
     AGroup 15391 1 [sym_kPacked]; AGroup 15393 1 [sym_kRecord]; SGroup 3870 1 [sym__ppIf];
     SGroup 10605 1 [sym__subRangeUnary]; SGroup 10614 1 [sym__subRangeBinary];
     SGroup 10620 1 [sym__subRangeCall]; SGroup 12013 1 [sym_type]; AGroup 3 2 syms_5;
     AGroup 14851 2 syms_6; AGroup 14855 2 syms_7; AGroup 14857 2 syms_8; AGroup 14861 2 syms_9;
     AGroup 14883 2 syms_11; SGroup 10647 2 syms_12; SGroup 10482 3 syms_13;
     SGroup 11313 3 syms_30; SGroup 10505 4 syms_31; SGroup 12384 10 syms_32]);
   (61043, 32, [AGroup 5 1 [sym_ppDirective]; AGroup 14849 1 [anon_sym_LPAREN];
     AGroup 14853 1 [anon_sym_POUND]; AGroup 14859 1 [aux_sym_ppUsesBlock_token1];
     AGroup 14863 1 [sym_kHat]; AGroup 14865 1 [sym_ppFragmentExpr];
     AGroup 14867 1 [sym_identifier]; AGroup 14871 1 [sym_kSpecialize];
     AGroup 14873 1 [sym_kReference]; AGroup 14875 1 [sym_kArray]; AGroup 14881 1 [sym_kFile];
     AGroup 14889 1 [sym_kSet]; AGroup 14891 1 [sym_kString]; AGroup 15387 1 [sym_kClass];
     AGroup 15391 1 [sym_kPacked]; AGroup 15393 1 [sym_kRecord]; SGroup 3870 1 [sym__ppIf];
     SGroup 10605 1 [sym__subRangeUnary]; SGroup 10614 1 [sym__subRangeBinary];
     SGroup 10620 1 [sym__subRangeCall]; SGroup 12020 1 [sym_type]; AGroup 3 2 syms_5;
     AGroup 14851 2 syms_6; AGroup 14855 2 syms_7; AGroup 14857 2 syms_8; AGroup 14861 2 syms_9;
     AGroup 14883 2 syms_11; SGroup 10647 2 syms_12; SGroup 10482 3 syms_13;
     SGroup 11313 3 syms_30; SGroup 10505 4 syms_31; SGroup 12384 10 syms_32]);
   (61163, 32, [AGroup 5 1 [sym_ppDirective]; AGroup 14853 1 [anon_sym_POUND];
     AGroup 14859 1 [aux_sym_ppUsesBlock_token1]; AGroup 15357 1 [anon_sym_LPAREN];
     AGroup 15359 1 [sym_kHat]; AGroup 15361 1 [sym_ppFragmentExpr];
     AGroup 15363 1 [sym_identifier]; AGroup 15365 1 [sym_kSpecialize];
     AGroup 15367 1 [sym_kReference]; AGroup 15369 1 [sym_kArray]; AGroup 15371 1 [sym_kClass];
     AGroup 15375 1 [sym_kFile]; AGroup 15379 1 [sym_kPacked]; AGroup 15381 1 [sym_kRecord];
     AGroup 15383 1 [sym_kSet]; AGroup 15385 1 [sym_kString]; SGroup 3813 1 [sym__ppIf];
     SGroup 10605 1 [sym__subRangeUnary]; SGroup 10614 1 [sym__subRangeBinary];
     SGroup 10620 1 [sym__subRangeCall]; SGroup 10934 1 [sym_type]; AGroup 3 2 syms_5;
     AGroup 14851 2 syms_6; AGroup 14855 2 syms_7; AGroup 14857 2 syms_8; AGroup 14861 2 syms_9;
     AGroup 15377 2 syms_11; SGroup 10647 2 syms_12; SGroup 10482 3 syms_13;
     SGroup 11272 3 syms_30; SGroup 10358 4 syms_31; SGroup 11091 10 syms_32]);
   (61283, 24, [AGroup 5 1 [sym_ppDirective]; AGroup 16819 1 [anon_sym_LBRACK];
     AGroup 16822 1 [anon_sym_LPAREN]; AGroup 16828 1 [anon_sym_POUND];
     AGroup 16846 1 [sym_identifier]; AGroup 16849 1 [sym_kSpecialize]; AGroup 16855 1 [sym_kIf];
     AGroup 16858 1 [sym_kInherited]; AGroup 16861 1 [sym_kString];
     SGroup 3350 1 [aux_sym_recInitializer_repeat1]; SGroup 15850 1 [sym_recInitializerField];
     AGroup 3 2 syms_5; AGroup 16825 2 syms_6; AGroup 16831 2 syms_7; AGroup 16834 2 syms_8;
     AGroup 16837 2 syms_9; AGroup 16840 2 syms_10; AGroup 16852 2 syms_11;
     SGroup 8129 2 syms_12; SGroup 7100 3 syms_13; SGroup 13515 3 syms_56;
     AGroup 16843 4 syms_57; SGroup 9426 4 syms_14; SGroup 8464 14 syms_17]);
   (61387, 32, [AGroup 5 1 [sym_ppDirective]; AGroup 14849 1 [anon_sym_LPAREN];
     AGroup 14853 1 [anon_sym_POUND]; AGroup 14859 1 [aux_sym_ppUsesBlock_token1];
     AGroup 14863 1 [sym_kHat]; AGroup 14865 1 [sym_ppFragmentExpr];
     AGroup 14867 1 [sym_identifier]; AGroup 14871 1 [sym_kSpecialize];
     AGroup 14873 1 [sym_kReference]; AGroup 14875 1 [sym_kArray]; AGroup 14881 1 [sym_kFile];
     AGroup 14889 1 [sym_kSet]; AGroup 14891 1 [sym_kString]; AGroup 15387 1 [sym_kClass];
     AGroup 15391 1 [sym_kPacked]; AGroup 15393 1 [sym_kRecord]; SGroup 3870 1 [sym__ppIf];
     SGroup 10605 1 [sym__subRangeUnary]; SGroup 10614 1 [sym__subRangeBinary];
     SGroup 10620 1 [sym__subRangeCall]; SGroup 13670 1 [sym_type]; AGroup 3 2 syms_5;
     AGroup 14851 2 syms_6; AGroup 14855 2 syms_7; AGroup 14857 2 syms_8; AGroup 14861 2 syms_9;
     AGroup 14883 2 syms_11; SGroup 10647 2 syms_12; SGroup 10482 3 syms_13;
     SGroup 11313 3 syms_30; SGroup 10505 4 syms_31; SGroup 12384 10 syms_32]);
   (61507, 24, [AGroup 5 1 [sym_ppDirective]; AGroup 15647 1 [anon_sym_LBRACK];
     AGroup 15649 1 [anon_sym_LPAREN]; AGroup 15653 1 [anon_sym_POUND];
     AGroup 15665 1 [sym_identifier]; AGroup 15667 1 [sym_kSpecialize];
     AGroup 15673 1 [sym_kInherited]; AGroup 15675 1 [sym_kString]; AGroup 15755 1 [sym_kIf];
     SGroup 3350 1 [aux_sym_recInitializer_repeat1]; SGroup 13360 1 [sym_recInitializerField];
     AGroup 3 2 syms_5; AGroup 15651 2 syms_6; AGroup 15655 2 syms_7; AGroup 15657 2 syms_8;
     AGroup 15669 2 syms_11; AGroup 15747 2 syms_9; AGroup 15749 2 syms_10;
     SGroup 8129 2 syms_12; SGroup 7100 3 syms_13; SGroup 13515 3 syms_56;
     AGroup 15751 4 syms_57; SGroup 9426 4 syms_14; SGroup 8464 14 syms_17]);
   (61611, 5, [AGroup 5 1 [sym_ppDirective]; AGroup 3 2 syms_5; AGroup 15473 7 syms_34;
     AGroup 15403 18 syms_36; AGroup 15471 27 syms_77]);
   (61677, 32, [AGroup 5 1 [sym_ppDirective]; AGroup 14849 1 [anon_sym_LPAREN];
     AGroup 14853 1 [anon_sym_POUND]; AGroup 14859 1 [aux_sym_ppUsesBlock_token1];
     AGroup 14863 1 [sym_kHat]; AGroup 14865 1 [sym_ppFragmentExpr];
     AGroup 14867 1 [sym_identifier]; AGroup 14871 1 [sym_kSpecialize];
     AGroup 14873 1 [sym_kReference]; AGroup 14875 1 [sym_kArray]; AGroup 14881 1 [sym_kFile];
     AGroup 14889 1 [sym_kSet]; AGroup 14891 1 [sym_kString]; AGroup 15387 1 [sym_kClass];
     AGroup 15391 1 [sym_kPacked]; AGroup 15393 1 [sym_kRecord]; SGroup 3870 1 [sym__ppIf];
     SGroup 10605 1 [sym__subRangeUnary]; SGroup 10614 1 [sym__subRangeBinary];
     SGroup 10620 1 [sym__subRangeCall]; SGroup 13749 1 [sym_type]; AGroup 3 2 syms_5;
     AGroup 14851 2 syms_6; AGroup 14855 2 syms_7; AGroup 14857 2 syms_8; AGroup 14861 2 syms_9;
     AGroup 14883 2 syms_11; SGroup 10647 2 syms_12; SGroup 10482 3 syms_13;
     SGroup 11313 3 syms_30; SGroup 10505 4 syms_31; SGroup 12384 10 syms_32]);
   (61797, 24, [AGroup 5 1 [sym_ppDirective]; AGroup 15647 1 [anon_sym_LBRACK];
     AGroup 15649 1 [anon_sym_LPAREN]; AGroup 15653 1 [anon_sym_POUND];
     AGroup 15665 1 [sym_identifier]; AGroup 15667 1 [sym_kSpecialize];
     AGroup 15673 1 [sym_kInherited]; AGroup 15675 1 [sym_kString]; AGroup 15755 1 [sym_kIf];
     SGroup 3350 1 [aux_sym_recInitializer_repeat1]; SGroup 13925 1 [sym_recInitializerField];
     AGroup 3 2 syms_5; AGroup 15651 2 syms_6; AGroup 15655 2 syms_7; AGroup 15657 2 syms_8;
     AGroup 15669 2 syms_11; AGroup 15747 2 syms_9; AGroup 15749 2 syms_10;
     SGroup 8129 2 syms_12; SGroup 7100 3 syms_13; SGroup 13515 3 syms_56;
     AGroup 15751 4 syms_57; SGroup 9426 4 syms_14; SGroup 8464 14 syms_17]);
   (61901, 4, [AGroup 5 1 [sym_ppDirective]; AGroup 3 2 syms_5; AGroup 15355 7 syms_34;
     AGroup 15353 45 syms_76]);
   (61965, 32, [AGroup 5 1 [sym_ppDirective]; AGroup 14849 1 [anon_sym_LPAREN];
     AGroup 14853 1 [anon_sym_POUND]; AGroup 14859 1 [aux_sym_ppUsesBlock_token1];
     AGroup 14863 1 [sym_kHat]; AGroup 14865 1 [sym_ppFragmentExpr];
     AGroup 14867 1 [sym_identifier]; AGroup 14871 1 [sym_kSpecialize];
     AGroup 14873 1 [sym_kReference]; AGroup 14875 1 [sym_kArray]; AGroup 14881 1 [sym_kFile];
     AGroup 14889 1 [sym_kSet]; AGroup 14891 1 [sym_kString]; AGroup 15387 1 [sym_kClass];
     AGroup 15391 1 [sym_kPacked]; AGroup 15393 1 [sym_kRecord]; SGroup 3870 1 [sym__ppIf];
     SGroup 10605 1 [sym__subRangeUnary]; SGroup 10614 1 [sym__subRangeBinary];
     SGroup 10620 1 [sym__subRangeCall]; SGroup 13144 1 [sym_type]; AGroup 3 2 syms_5;
     AGroup 14851 2 syms_6; AGroup 14855 2 syms_7; AGroup 14857 2 syms_8; AGroup 14861 2 syms_9;
     AGroup 14883 2 syms_11; SGroup 10647 2 syms_12; SGroup 10482 3 syms_13;
     SGroup 11313 3 syms_30; SGroup 10505 4 syms_31; SGroup 12384 10 syms_32]);
   (62085, 24, [AGroup 5 1 [sym_ppDirective]; AGroup 15647 1 [anon_sym_LBRACK];
     AGroup 15649 1 [anon_sym_LPAREN]; AGroup 15653 1 [anon_sym_POUND];
     AGroup 15665 1 [sym_identifier]; AGroup 15667 1 [sym_kSpecialize];
     AGroup 15673 1 [sym_kInherited]; AGroup 15675 1 [sym_kString]; AGroup 15755 1 [sym_kIf];
     SGroup 3350 1 [aux_sym_recInitializer_repeat1]; SGroup 13254 1 [sym_recInitializerField];
     AGroup 3 2 syms_5; AGroup 15651 2 syms_6; AGroup 15655 2 syms_7; AGroup 15657 2 syms_8;
     AGroup 15669 2 syms_11; AGroup 15747 2 syms_9; AGroup 15749 2 syms_10;
     SGroup 8129 2 syms_12; SGroup 7100 3 syms_13; SGroup 13515 3 syms_56;
     AGroup 15751 4 syms_57; SGroup 9426 4 syms_14; SGroup 8464 14 syms_17])
  ].

(** States 3359 to 3458. *)
Definition small_runs_3359 : list small_run :=
  [
   (62189, 32, [AGroup 5 1 [sym_ppDirective]; AGroup 14849 1 [anon_sym_LPAREN];
     AGroup 14853 1 [anon_sym_POUND]; AGroup 14859 1 [aux_sym_ppUsesBlock_token1];
     AGroup 14863 1 [sym_kHat]; AGroup 14865 1 [sym_ppFragmentExpr];
     AGroup 14867 1 [sym_identifier]; AGroup 14871 1 [sym_kSpecialize];
     AGroup 14873 1 [sym_kReference]; AGroup 14875 1 [sym_kArray]; AGroup 14881 1 [sym_kFile];
     AGroup 14889 1 [sym_kSet]; AGroup 14891 1 [sym_kString]; AGroup 15387 1 [sym_kClass];
     AGroup 15391 1 [sym_kPacked]; AGroup 15393 1 [sym_kRecord]; SGroup 3870 1 [sym__ppIf];
     SGroup 10605 1 [sym__subRangeUnary]; SGroup 10614 1 [sym__subRangeBinary];
     SGroup 10620 1 [sym__subRangeCall]; SGroup 12171 1 [sym_type]; AGroup 3 2 syms_5;
     AGroup 14851 2 syms_6; AGroup 14855 2 syms_7; AGroup 14857 2 syms_8; AGroup 14861 2 syms_9;
     AGroup 14883 2 syms_11; SGroup 10647 2 syms_12; SGroup 10482 3 syms_13;
     SGroup 11313 3 syms_30; SGroup 10505 4 syms_31; SGroup 12384 10 syms_32]);
   (62309, 32, [AGroup 5 1 [sym_ppDirective]; AGroup 14849 1 [anon_sym_LPAREN];
     AGroup 14853 1 [anon_sym_POUND]; AGroup 14859 1 [aux_sym_ppUsesBlock_token1];
     AGroup 14863 1 [sym_kHat]; AGroup 14865 1 [sym_ppFragmentExpr];
     AGroup 14867 1 [sym_identifier]; AGroup 14871 1 [sym_kSpecialize];
     AGroup 14873 1 [sym_kReference]; AGroup 14875 1 [sym_kArray]; AGroup 14881 1 [sym_kFile];
     AGroup 14889 1 [sym_kSet]; AGroup 14891 1 [sym_kString]; AGroup 15387 1 [sym_kClass];
     AGroup 15391 1 [sym_kPacked]; AGroup 15393 1 [sym_kRecord]; SGroup 3870 1 [sym__ppIf];
     SGroup 10605 1 [sym__subRangeUnary]; SGroup 10614 1 [sym__subRangeBinary];
     SGroup 10620 1 [sym__subRangeCall]; SGroup 12187 1 [sym_type]; AGroup 3 2 syms_5;
     AGroup 14851 2 syms_6; AGroup 14855 2 syms_7; AGroup 14857 2 syms_8; AGroup 14861 2 syms_9;
     AGroup 14883 2 syms_11; SGroup 10647 2 syms_12; SGroup 10482 3 syms_13;
     SGroup 11313 3 syms_30; SGroup 10505 4 syms_31; SGroup 12384 10 syms_32]);
   (62429, 5, [AGroup 5 1 [sym_ppDirective]; AGroup 3 2 syms_5; AGroup 15504 7 syms_34;
     AGroup 15403 18 syms_36; AGroup 15502 27 syms_77]);
   (62495, 5, [AGroup 5 1 [sym_ppDirective]; AGroup 3 2 syms_5; AGroup 15484 7 syms_34;
     AGroup 15403 18 syms_36; AGroup 15482 27 syms_77]);
   (62561, 5, [AGroup 5 1 [sym_ppDirective]; AGroup 3 2 syms_5; AGroup 15492 7 syms_34;
     AGroup 15403 18 syms_36; AGroup 15490 27 syms_77]);
   (62627, 32, [AGroup 5 1 [sym_ppDirective]; AGroup 14849 1 [anon_sym_LPAREN];
     AGroup 14853 1 [anon_sym_POUND]; AGroup 14859 1 [aux_sym_ppUsesBlock_token1];
     AGroup 14863 1 [sym_kHat]; AGroup 14865 1 [sym_ppFragmentExpr];
     AGroup 14867 1 [sym_identifier]; AGroup 14871 1 [sym_kSpecialize];
     AGroup 14873 1 [sym_kReference]; AGroup 14875 1 [sym_kArray]; AGroup 14881 1 [sym_kFile];
     AGroup 14889 1 [sym_kSet]; AGroup 14891 1 [sym_kString]; AGroup 15387 1 [sym_kClass];
     AGroup 15391 1 [sym_kPacked]; AGroup 15393 1 [sym_kRecord]; SGroup 3870 1 [sym__ppIf];
     SGroup 10605 1 [sym__subRangeUnary]; SGroup 10614 1 [sym__subRangeBinary];
     SGroup 10620 1 [sym__subRangeCall]; SGroup 13891 1 [sym_type]; AGroup 3 2 syms_5;
     AGroup 14851 2 syms_6; AGroup 14855 2 syms_7; AGroup 14857 2 syms_8; AGroup 14861 2 syms_9;
     AGroup 14883 2 syms_11; SGroup 10647 2 syms_12; SGroup 10482 3 syms_13;
     SGroup 11313 3 syms_30; SGroup 10505 4 syms_31; SGroup 12384 10 syms_32]);
   (62747, 25, [AGroup 5 1 [sym_ppDirective]; AGroup 15011 1 [anon_sym_LBRACK];
     AGroup 15013 1 [anon_sym_LPAREN]; AGroup 15017 1 [anon_sym_POUND];
     AGroup 15029 1 [sym_kSpecialize]; AGroup 15035 1 [sym_kIf]; AGroup 15037 1 [sym_kInherited];
     AGroup 15039 1 [sym_kString]; SGroup 3201 1 [aux_sym_declVariant_repeat1];
     SGroup 3889 1 [aux_sym_caseLabel_repeat1]; SGroup 13157 1 [sym_declVariantClause];
     SGroup 13487 1 [sym_range]; SGroup 15709 1 [sym_caseLabel]; AGroup 3 2 syms_5;
     AGroup 15015 2 syms_6; AGroup 15019 2 syms_7; AGroup 15021 2 syms_8; AGroup 15023 2 syms_9;
     AGroup 15025 2 syms_10; AGroup 15033 2 syms_11; SGroup 8466 2 syms_12;
     SGroup 7201 3 syms_13; SGroup 9422 4 syms_14; AGroup 15027 5 syms_15; SGroup 7990 14 syms_17]);
   (62853, 32, [AGroup 5 1 [sym_ppDirective]; AGroup 14849 1 [anon_sym_LPAREN];
     AGroup 14853 1 [anon_sym_POUND]; AGroup 14859 1 [aux_sym_ppUsesBlock_token1];
     AGroup 14863 1 [sym_kHat]; AGroup 14865 1 [sym_ppFragmentExpr];
     AGroup 14867 1 [sym_identifier]; AGroup 14871 1 [sym_kSpecialize];
     AGroup 14873 1 [sym_kReference]; AGroup 14875 1 [sym_kArray]; AGroup 14881 1 [sym_kFile];
     AGroup 14889 1 [sym_kSet]; AGroup 14891 1 [sym_kString]; AGroup 15387 1 [sym_kClass];
     AGroup 15391 1 [sym_kPacked]; AGroup 15393 1 [sym_kRecord]; SGroup 3870 1 [sym__ppIf];
     SGroup 10605 1 [sym__subRangeUnary]; SGroup 10614 1 [sym__subRangeBinary];
     SGroup 10620 1 [sym__subRangeCall]; SGroup 12750 1 [sym_type]; AGroup 3 2 syms_5;
     AGroup 14851 2 syms_6; AGroup 14855 2 syms_7; AGroup 14857 2 syms_8; AGroup 14861 2 syms_9;
     AGroup 14883 2 syms_11; SGroup 10647 2 syms_12; SGroup 10482 3 syms_13;
     SGroup 11313 3 syms_30; SGroup 10505 4 syms_31; SGroup 12384 10 syms_32]);
   (62973, 5, [AGroup 5 1 [sym_ppDirective]; AGroup 3 2 syms_5; AGroup 15401 7 syms_34;
     AGroup 15403 18 syms_36; AGroup 15399 27 syms_77]);
   (63039, 5, [AGroup 5 1 [sym_ppDirective]; AGroup 3 2 syms_5; AGroup 15439 7 syms_34;
     AGroup 15403 18 syms_36; AGroup 15437 27 syms_77]);
   (63105, 32, [AGroup 5 1 [sym_ppDirective]; AGroup 14849 1 [anon_sym_LPAREN];
     AGroup 14853 1 [anon_sym_POUND]; AGroup 14859 1 [aux_sym_ppUsesBlock_token1];
     AGroup 14863 1 [sym_kHat]; AGroup 14865 1 [sym_ppFragmentExpr];
     AGroup 14867 1 [sym_identifier]; AGroup 14871 1 [sym_kSpecialize];
     AGroup 14873 1 [sym_kReference]; AGroup 14875 1 [sym_kArray]; AGroup 14881 1 [sym_kFile];
     AGroup 14889 1 [sym_kSet]; AGroup 14891 1 [sym_kString]; AGroup 15387 1 [sym_kClass];
     AGroup 15391 1 [sym_kPacked]; AGroup 15393 1 [sym_kRecord]; SGroup 3870 1 [sym__ppIf];
     SGroup 10605 1 [sym__subRangeUnary]; SGroup 10614 1 [sym__subRangeBinary];
     SGroup 10620 1 [sym__subRangeCall]; SGroup 12368 1 [sym_type]; AGroup 3 2 syms_5;
     AGroup 14851 2 syms_6; AGroup 14855 2 syms_7; AGroup 14857 2 syms_8; AGroup 14861 2 syms_9;
     AGroup 14883 2 syms_11; SGroup 10647 2 syms_12; SGroup 10482 3 syms_13;
     SGroup 11313 3 syms_30; SGroup 10505 4 syms_31; SGroup 12384 10 syms_32]);
   (63225, 5, [AGroup 5 1 [sym_ppDirective]; AGroup 3 2 syms_5; AGroup 15488 7 syms_34;
     AGroup 15403 18 syms_36; AGroup 15486 27 syms_77]);
   (63291, 32, [AGroup 5 1 [sym_ppDirective]; AGroup 14849 1 [anon_sym_LPAREN];
     AGroup 14853 1 [anon_sym_POUND]; AGroup 14859 1 [aux_sym_ppUsesBlock_token1];
     AGroup 14863 1 [sym_kHat]; AGroup 14865 1 [sym_ppFragmentExpr];
     AGroup 14867 1 [sym_identifier]; AGroup 14871 1 [sym_kSpecialize];
     AGroup 14873 1 [sym_kReference]; AGroup 14875 1 [sym_kArray]; AGroup 14881 1 [sym_kFile];
     AGroup 14889 1 [sym_kSet]; AGroup 14891 1 [sym_kString]; AGroup 15387 1 [sym_kClass];
     AGroup 15391 1 [sym_kPacked]; AGroup 15393 1 [sym_kRecord]; SGroup 3870 1 [sym__ppIf];
     SGroup 10605 1 [sym__subRangeUnary]; SGroup 10614 1 [sym__subRangeBinary];
     SGroup 10620 1 [sym__subRangeCall]; SGroup 12192 1 [sym_type]; AGroup 3 2 syms_5;
     AGroup 14851 2 syms_6; AGroup 14855 2 syms_7; AGroup 14857 2 syms_8; AGroup 14861 2 syms_9;
     AGroup 14883 2 syms_11; SGroup 10647 2 syms_12; SGroup 10482 3 syms_13;
     SGroup 11313 3 syms_30; SGroup 10505 4 syms_31; SGroup 12384 10 syms_32]);
   (63411, 5, [AGroup 5 1 [sym_ppDirective]; AGroup 3 2 syms_5; AGroup 15496 7 syms_34;
     AGroup 15403 18 syms_36; AGroup 15494 27 syms_77]);
   (63477, 32, [AGroup 5 1 [sym_ppDirective]; AGroup 14849 1 [anon_sym_LPAREN];
     AGroup 14853 1 [anon_sym_POUND]; AGroup 14859 1 [aux_sym_ppUsesBlock_token1];
     AGroup 14863 1 [sym_kHat]; AGroup 14865 1 [sym_ppFragmentExpr];
     AGroup 14867 1 [sym_identifier]; AGroup 14871 1 [sym_kSpecialize];
     AGroup 14873 1 [sym_kReference]; AGroup 14875 1 [sym_kArray]; AGroup 14881 1 [sym_kFile];
     AGroup 14889 1 [sym_kSet]; AGroup 14891 1 [sym_kString]; AGroup 15387 1 [sym_kClass];
     AGroup 15391 1 [sym_kPacked]; AGroup 15393 1 [sym_kRecord]; SGroup 3870 1 [sym__ppIf];
     SGroup 10605 1 [sym__subRangeUnary]; SGroup 10614 1 [sym__subRangeBinary];
     SGroup 10620 1 [sym__subRangeCall]; SGroup 11690 1 [sym_type]; AGroup 3 2 syms_5;
     AGroup 14851 2 syms_6; AGroup 14855 2 syms_7; AGroup 14857 2 syms_8; AGroup 14861 2 syms_9;
     AGroup 14883 2 syms_11; SGroup 10647 2 syms_12; SGroup 10482 3 syms_13;
     SGroup 11313 3 syms_30; SGroup 10505 4 syms_31; SGroup 12384 10 syms_32]);
   (63597, 35, [AGroup 5 1 [sym_ppDirective]; AGroup 13347 1 [anon_sym_LBRACK];
     AGroup 13351 1 [aux_sym_ppUsesBlock_token1]; AGroup 13365 1 [sym_identifier];
     AGroup 13367 1 [sym_kGeneric]; AGroup 13369 1 [sym_kOperator]; AGroup 13373 1 [sym_kStrict];
     AGroup 13377 1 [sym_kCase]; AGroup 13379 1 [sym_kClass]; AGroup 13391 1 [sym_kProperty];
     AGroup 13395 1 [sym_kType]; AGroup 15645 1 [sym_kHelper]; AGroup 16703 1 [anon_sym_SEMI];
     AGroup 16705 1 [anon_sym_LPAREN]; AGroup 16709 1 [sym_kExternal]; AGroup 16864 1 [sym_kEnd];
     SGroup 2 1 [sym__ppIf]; SGroup 6354 1 [sym__visibility]; SGroup 9779 1 [sym_ppBlock];
     SGroup 9835 1 [sym__declOperator]; SGroup 10247 1 [sym__declProc];
     SGroup 10617 1 [sym_rttiAttributes]; SGroup 10730 1 [aux_sym_rttiAttributes_repeat2];
     SGroup 13987 1 [aux_sym_genericArg_repeat1]; SGroup 14434 1 [sym_declVariant];
     SGroup 14565 1 [sym__declClass]; AGroup 3 2 syms_5; AGroup 13381 2 syms_65;
     AGroup 13393 2 syms_66; AGroup 16707 2 syms_67; SGroup 5685 2 syms_68;
     SGroup 10490 3 syms_69; AGroup 13383 4 syms_3; AGroup 13371 6 syms_70; SGroup 6150 6 syms_71]);
   (63723, 32, [AGroup 5 1 [sym_ppDirective]; AGroup 14849 1 [anon_sym_LPAREN];
     AGroup 14853 1 [anon_sym_POUND]; AGroup 14859 1 [aux_sym_ppUsesBlock_token1];
     AGroup 14863 1 [sym_kHat]; AGroup 14865 1 [sym_ppFragmentExpr];
     AGroup 14867 1 [sym_identifier]; AGroup 14871 1 [sym_kSpecialize];
     AGroup 14873 1 [sym_kReference]; AGroup 14875 1 [sym_kArray]; AGroup 14881 1 [sym_kFile];
     AGroup 14889 1 [sym_kSet]; AGroup 14891 1 [sym_kString]; AGroup 15387 1 [sym_kClass];
     AGroup 15391 1 [sym_kPacked]; AGroup 15393 1 [sym_kRecord]; SGroup 3870 1 [sym__ppIf];
     SGroup 10605 1 [sym__subRangeUnary]; SGroup 10614 1 [sym__subRangeBinary];
     SGroup 10620 1 [sym__subRangeCall]; SGroup 13126 1 [sym_type]; AGroup 3 2 syms_5;
     AGroup 14851 2 syms_6; AGroup 14855 2 syms_7; AGroup 14857 2 syms_8; AGroup 14861 2 syms_9;
     AGroup 14883 2 syms_11; SGroup 10647 2 syms_12; SGroup 10482 3 syms_13;
     SGroup 11313 3 syms_30; SGroup 10505 4 syms_31; SGroup 12384 10 syms_32]);
   (63843, 32, [AGroup 5 1 [sym_ppDirective]; AGroup 14849 1 [anon_sym_LPAREN];
     AGroup 14853 1 [anon_sym_POUND]; AGroup 14859 1 [aux_sym_ppUsesBlock_token1];
     AGroup 14863 1 [sym_kHat]; AGroup 14865 1 [sym_ppFragmentExpr];
     AGroup 14867 1 [sym_identifier]; AGroup 14871 1 [sym_kSpecialize];
     AGroup 14873 1 [sym_kReference]; AGroup 14875 1 [sym_kArray]; AGroup 14881 1 [sym_kFile];
     AGroup 14889 1 [sym_kSet]; AGroup 14891 1 [sym_kString]; AGroup 15387 1 [sym_kClass];
     AGroup 15391 1 [sym_kPacked]; AGroup 15393 1 [sym_kRecord]; SGroup 3870 1 [sym__ppIf];
     SGroup 10605 1 [sym__subRangeUnary]; SGroup 10614 1 [sym__subRangeBinary];
     SGroup 10620 1 [sym__subRangeCall]; SGroup 13231 1 [sym_type]; AGroup 3 2 syms_5;
     AGroup 14851 2 syms_6; AGroup 14855 2 syms_7; AGroup 14857 2 syms_8; AGroup 14861 2 syms_9;
     AGroup 14883 2 syms_11; SGroup 10647 2 syms_12; SGroup 10482 3 syms_13;
     SGroup 11313 3 syms_30; SGroup 10505 4 syms_31; SGroup 12384 10 syms_32]);
   (63963, 32, [AGroup 5 1 [sym_ppDirective]; AGroup 14849 1 [anon_sym_LPAREN];
     AGroup 14853 1 [anon_sym_POUND]; AGroup 14859 1 [aux_sym_ppUsesBlock_token1];
     AGroup 14863 1 [sym_kHat]; AGroup 14865 1 [sym_ppFragmentExpr];
     AGroup 14867 1 [sym_identifier]; AGroup 14871 1 [sym_kSpecialize];
     AGroup 14873 1 [sym_kReference]; AGroup 14875 1 [sym_kArray]; AGroup 14881 1 [sym_kFile];
     AGroup 14889 1 [sym_kSet]; AGroup 14891 1 [sym_kString]; AGroup 15387 1 [sym_kClass];
     AGroup 15391 1 [sym_kPacked]; AGroup 15393 1 [sym_kRecord]; SGroup 3870 1 [sym__ppIf];
     SGroup 10605 1 [sym__subRangeUnary]; SGroup 10614 1 [sym__subRangeBinary];
     SGroup 10620 1 [sym__subRangeCall]; SGroup 13581 1 [sym_type]; AGroup 3 2 syms_5;
     AGroup 14851 2 syms_6; AGroup 14855 2 syms_7; AGroup 14857 2 syms_8; AGroup 14861 2 syms_9;
     AGroup 14883 2 syms_11; SGroup 10647 2 syms_12; SGroup 10482 3 syms_13;
     SGroup 11313 3 syms_30; SGroup 10505 4 syms_31; SGroup 12384 10 syms_32]);
   (64083, 32, [AGroup 5 1 [sym_ppDirective]; AGroup 14849 1 [anon_sym_LPAREN];
     AGroup 14853 1 [anon_sym_POUND]; AGroup 14859 1 [aux_sym_ppUsesBlock_token1];
     AGroup 14863 1 [sym_kHat]; AGroup 14865 1 [sym_ppFragmentExpr];
     AGroup 14867 1 [sym_identifier]; AGroup 14871 1 [sym_kSpecialize];
     AGroup 14873 1 [sym_kReference]; AGroup 14875 1 [sym_kArray]; AGroup 14881 1 [sym_kFile];
     AGroup 14889 1 [sym_kSet]; AGroup 14891 1 [sym_kString]; AGroup 15387 1 [sym_kClass];
     AGroup 15391 1 [sym_kPacked]; AGroup 15393 1 [sym_kRecord]; SGroup 3870 1 [sym__ppIf];
     SGroup 10605 1 [sym__subRangeUnary]; SGroup 10614 1 [sym__subRangeBinary];
     SGroup 10620 1 [sym__subRangeCall]; SGroup 13616 1 [sym_type]; AGroup 3 2 syms_5;
     AGroup 14851 2 syms_6; AGroup 14855 2 syms_7; AGroup 14857 2 syms_8; AGroup 14861 2 syms_9;
     AGroup 14883 2 syms_11; SGroup 10647 2 syms_12; SGroup 10482 3 syms_13;
     SGroup 11313 3 syms_30; SGroup 10505 4 syms_31; SGroup 12384 10 syms_32]);
   (64203, 32, [AGroup 5 1 [sym_ppDirective]; AGroup 14849 1 [anon_sym_LPAREN];
     AGroup 14853 1 [anon_sym_POUND]; AGroup 14859 1 [aux_sym_ppUsesBlock_token1];
     AGroup 14863 1 [sym_kHat]; AGroup 14865 1 [sym_ppFragmentExpr];
     AGroup 14867 1 [sym_identifier]; AGroup 14871 1 [sym_kSpecialize];
     AGroup 14873 1 [sym_kReference]; AGroup 14875 1 [sym_kArray]; AGroup 14881 1 [sym_kFile];
     AGroup 14889 1 [sym_kSet]; AGroup 14891 1 [sym_kString]; AGroup 15387 1 [sym_kClass];
     AGroup 15391 1 [sym_kPacked]; AGroup 15393 1 [sym_kRecord]; SGroup 3870 1 [sym__ppIf];
     SGroup 10605 1 [sym__subRangeUnary]; SGroup 10614 1 [sym__subRangeBinary];
     SGroup 10620 1 [sym__subRangeCall]; SGroup 13865 1 [sym_type]; AGroup 3 2 syms_5;
     AGroup 14851 2 syms_6; AGroup 14855 2 syms_7; AGroup 14857 2 syms_8; AGroup 14861 2 syms_9;
     AGroup 14883 2 syms_11; SGroup 10647 2 syms_12; SGroup 10482 3 syms_13;
     SGroup 11313 3 syms_30; SGroup 10505 4 syms_31; SGroup 12384 10 syms_32]);
   (64323, 32, [AGroup 5 1 [sym_ppDirective]; AGroup 14849 1 [anon_sym_LPAREN];
     AGroup 14853 1 [anon_sym_POUND]; AGroup 14859 1 [aux_sym_ppUsesBlock_token1];
     AGroup 14863 1 [sym_kHat]; AGroup 14865 1 [sym_ppFragmentExpr];
     AGroup 14867 1 [sym_identifier]; AGroup 14871 1 [sym_kSpecialize];
     AGroup 14873 1 [sym_kReference]; AGroup 14875 1 [sym_kArray]; AGroup 14881 1 [sym_kFile];
     AGroup 14889 1 [sym_kSet]; AGroup 14891 1 [sym_kString]; AGroup 15387 1 [sym_kClass];
     AGroup 15391 1 [sym_kPacked]; AGroup 15393 1 [sym_kRecord]; SGroup 3870 1 [sym__ppIf];
     SGroup 10605 1 [sym__subRangeUnary]; SGroup 10614 1 [sym__subRangeBinary];
     SGroup 10620 1 [sym__subRangeCall]; SGroup 13937 1 [sym_type]; AGroup 3 2 syms_5;
     AGroup 14851 2 syms_6; AGroup 14855 2 syms_7; AGroup 14857 2 syms_8; AGroup 14861 2 syms_9;
     AGroup 14883 2 syms_11; SGroup 10647 2 syms_12; SGroup 10482 3 syms_13;
     SGroup 11313 3 syms_30; SGroup 10505 4 syms_31; SGroup 12384 10 syms_32]);
   (64443, 32, [AGroup 5 1 [sym_ppDirective]; AGroup 14853 1 [anon_sym_POUND];
     AGroup 14859 1 [aux_sym_ppUsesBlock_token1]; AGroup 15405 1 [anon_sym_LPAREN];
     AGroup 15407 1 [sym_kHat]; AGroup 15409 1 [sym_ppFragmentExpr];
     AGroup 15411 1 [sym_identifier]; AGroup 15413 1 [sym_kSpecialize];
     AGroup 15415 1 [sym_kReference]; AGroup 15417 1 [sym_kArray]; AGroup 15419 1 [sym_kClass];
     AGroup 15423 1 [sym_kFile]; AGroup 15427 1 [sym_kPacked]; AGroup 15429 1 [sym_kRecord];
     AGroup 15431 1 [sym_kSet]; AGroup 15433 1 [sym_kString]; SGroup 3836 1 [sym__ppIf];
     SGroup 10605 1 [sym__subRangeUnary]; SGroup 10614 1 [sym__subRangeBinary];
     SGroup 10620 1 [sym__subRangeCall]; SGroup 12218 1 [sym_type]; AGroup 3 2 syms_5;
     AGroup 14851 2 syms_6; AGroup 14855 2 syms_7; AGroup 14857 2 syms_8; AGroup 14861 2 syms_9;
     AGroup 15425 2 syms_11; SGroup 10647 2 syms_12; SGroup 10482 3 syms_13;
     SGroup 11244 3 syms_30; SGroup 10538 4 syms_31; SGroup 12943 10 syms_32]);
   (64563, 32, [AGroup 5 1 [sym_ppDirective]; AGroup 14849 1 [anon_sym_LPAREN];
     AGroup 14853 1 [anon_sym_POUND]; AGroup 14859 1 [aux_sym_ppUsesBlock_token1];
     AGroup 14863 1 [sym_kHat]; AGroup 14865 1 [sym_ppFragmentExpr];
     AGroup 14867 1 [sym_identifier]; AGroup 14871 1 [sym_kSpecialize];
     AGroup 14873 1 [sym_kReference]; AGroup 14875 1 [sym_kArray]; AGroup 14881 1 [sym_kFile];
     AGroup 14889 1 [sym_kSet]; AGroup 14891 1 [sym_kString]; AGroup 15387 1 [sym_kClass];
     AGroup 15391 1 [sym_kPacked]; AGroup 15393 1 [sym_kRecord]; SGroup 3870 1 [sym__ppIf];
     SGroup 10605 1 [sym__subRangeUnary]; SGroup 10614 1 [sym__subRangeBinary];
     SGroup 10620 1 [sym__subRangeCall]; SGroup 13009 1 [sym_type]; AGroup 3 2 syms_5;
     AGroup 14851 2 syms_6; AGroup 14855 2 syms_7; AGroup 14857 2 syms_8; AGroup 14861 2 syms_9;
     AGroup 14883 2 syms_11; SGroup 10647 2 syms_12; SGroup 10482 3 syms_13;
     SGroup 11313 3 syms_30; SGroup 10505 4 syms_31; SGroup 12384 10 syms_32]);
   (64683, 32, [AGroup 5 1 [sym_ppDirective]; AGroup 14849 1 [anon_sym_LPAREN];
     AGroup 14853 1 [anon_sym_POUND]; AGroup 14859 1 [aux_sym_ppUsesBlock_token1];
     AGroup 14863 1 [sym_kHat]; AGroup 14865 1 [sym_ppFragmentExpr];
     AGroup 14867 1 [sym_identifier]; AGroup 14871 1 [sym_kSpecialize];
     AGroup 14873 1 [sym_kReference]; AGroup 14875 1 [sym_kArray]; AGroup 14881 1 [sym_kFile];
     AGroup 14889 1 [sym_kSet]; AGroup 14891 1 [sym_kString]; AGroup 15387 1 [sym_kClass];
     AGroup 15391 1 [sym_kPacked]; AGroup 15393 1 [sym_kRecord]; SGroup 3870 1 [sym__ppIf];
     SGroup 10605 1 [sym__subRangeUnary]; SGroup 10614 1 [sym__subRangeBinary];
     SGroup 10620 1 [sym__subRangeCall]; SGroup 13028 1 [sym_type]; AGroup 3 2 syms_5;
     AGroup 14851 2 syms_6; AGroup 14855 2 syms_7; AGroup 14857 2 syms_8; AGroup 14861 2 syms_9;
     AGroup 14883 2 syms_11; SGroup 10647 2 syms_12; SGroup 10482 3 syms_13;
     SGroup 11313 3 syms_30; SGroup 10505 4 syms_31; SGroup 12384 10 syms_32]);
   (64803, 32, [AGroup 5 1 [sym_ppDirective]; AGroup 14849 1 [anon_sym_LPAREN];
     AGroup 14853 1 [anon_sym_POUND]; AGroup 14859 1 [aux_sym_ppUsesBlock_token1];
     AGroup 14863 1 [sym_kHat]; AGroup 14865 1 [sym_ppFragmentExpr];
     AGroup 14867 1 [sym_identifier]; AGroup 14871 1 [sym_kSpecialize];
     AGroup 14873 1 [sym_kReference]; AGroup 14875 1 [sym_kArray]; AGroup 14881 1 [sym_kFile];
     AGroup 14889 1 [sym_kSet]; AGroup 14891 1 [sym_kString]; AGroup 15387 1 [sym_kClass];
     AGroup 15391 1 [sym_kPacked]; AGroup 15393 1 [sym_kRecord]; SGroup 3870 1 [sym__ppIf];
     SGroup 10605 1 [sym__subRangeUnary]; SGroup 10614 1 [sym__subRangeBinary];
     SGroup 10620 1 [sym__subRangeCall]; SGroup 13085 1 [sym_type]; AGroup 3 2 syms_5;
     AGroup 14851 2 syms_6; AGroup 14855 2 syms_7; AGroup 14857 2 syms_8; AGroup 14861 2 syms_9;
     AGroup 14883 2 syms_11; SGroup 10647 2 syms_12; SGroup 10482 3 syms_13;
     SGroup 11313 3 syms_30; SGroup 10505 4 syms_31; SGroup 12384 10 syms_32]);
   (64923, 32, [AGroup 5 1 [sym_ppDirective]; AGroup 14849 1 [anon_sym_LPAREN];
     AGroup 14853 1 [anon_sym_POUND]; AGroup 14859 1 [aux_sym_ppUsesBlock_token1];
     AGroup 14863 1 [sym_kHat]; AGroup 14865 1 [sym_ppFragmentExpr];
     AGroup 14867 1 [sym_identifier]; AGroup 14871 1 [sym_kSpecialize];
     AGroup 14873 1 [sym_kReference]; AGroup 14875 1 [sym_kArray]; AGroup 14881 1 [sym_kFile];
     AGroup 14889 1 [sym_kSet]; AGroup 14891 1 [sym_kString]; AGroup 15387 1 [sym_kClass];
     AGroup 15391 1 [sym_kPacked]; AGroup 15393 1 [sym_kRecord]; SGroup 3870 1 [sym__ppIf];
     SGroup 10605 1 [sym__subRangeUnary]; SGroup 10614 1 [sym__subRangeBinary];
     SGroup 10620 1 [sym__subRangeCall]; SGroup 13107 1 [sym_type]; AGroup 3 2 syms_5;
     AGroup 14851 2 syms_6; AGroup 14855 2 syms_7; AGroup 14857 2 syms_8; AGroup 14861 2 syms_9;
     AGroup 14883 2 syms_11; SGroup 10647 2 syms_12; SGroup 10482 3 syms_13;
     SGroup 11313 3 syms_30; SGroup 10505 4 syms_31; SGroup 12384 10 syms_32]);
   (65043, 32, [AGroup 5 1 [sym_ppDirective]; AGroup 14849 1 [anon_sym_LPAREN];
     AGroup 14853 1 [anon_sym_POUND]; AGroup 14859 1 [aux_sym_ppUsesBlock_token1];
     AGroup 14863 1 [sym_kHat]; AGroup 14865 1 [sym_ppFragmentExpr];
     AGroup 14867 1 [sym_identifier]; AGroup 14871 1 [sym_kSpecialize];
     AGroup 14873 1 [sym_kReference]; AGroup 14875 1 [sym_kArray]; AGroup 14881 1 [sym_kFile];
     AGroup 14889 1 [sym_kSet]; AGroup 14891 1 [sym_kString]; AGroup 15387 1 [sym_kClass];
     AGroup 15391 1 [sym_kPacked]; AGroup 15393 1 [sym_kRecord]; SGroup 3870 1 [sym__ppIf];
     SGroup 10605 1 [sym__subRangeUnary]; SGroup 10614 1 [sym__subRangeBinary];
     SGroup 10620 1 [sym__subRangeCall]; SGroup 11696 1 [sym_type]; AGroup 3 2 syms_5;
     AGroup 14851 2 syms_6; AGroup 14855 2 syms_7; AGroup 14857 2 syms_8; AGroup 14861 2 syms_9;
     AGroup 14883 2 syms_11; SGroup 10647 2 syms_12; SGroup 10482 3 syms_13;
     SGroup 11313 3 syms_30; SGroup 10505 4 syms_31; SGroup 12384 10 syms_32]);
   (65163, 32, [AGroup 5 1 [sym_ppDirective]; AGroup 14853 1 [anon_sym_POUND];
     AGroup 14859 1 [aux_sym_ppUsesBlock_token1]; AGroup 15405 1 [anon_sym_LPAREN];
     AGroup 15407 1 [sym_kHat]; AGroup 15409 1 [sym_ppFragmentExpr];
     AGroup 15411 1 [sym_identifier]; AGroup 15413 1 [sym_kSpecialize];
     AGroup 15415 1 [sym_kReference]; AGroup 15417 1 [sym_kArray]; AGroup 15419 1 [sym_kClass];
     AGroup 15423 1 [sym_kFile]; AGroup 15427 1 [sym_kPacked]; AGroup 15429 1 [sym_kRecord];
     AGroup 15431 1 [sym_kSet]; AGroup 15433 1 [sym_kString]; SGroup 3836 1 [sym__ppIf];
     SGroup 10605 1 [sym__subRangeUnary]; SGroup 10614 1 [sym__subRangeBinary];
     SGroup 10620 1 [sym__subRangeCall]; SGroup 12105 1 [sym_type]; AGroup 3 2 syms_5;
     AGroup 14851 2 syms_6; AGroup 14855 2 syms_7; AGroup 14857 2 syms_8; AGroup 14861 2 syms_9;
     AGroup 15425 2 syms_11; SGroup 10647 2 syms_12; SGroup 10482 3 syms_13;
     SGroup 11244 3 syms_30; SGroup 10538 4 syms_31; SGroup 12943 10 syms_32]);
   (65283, 23, [AGroup 5 1 [sym_ppDirective]; AGroup 15615 1 [anon_sym_LBRACK];
     AGroup 15617 1 [anon_sym_LPAREN]; AGroup 15621 1 [anon_sym_POUND];
     AGroup 15635 1 [sym_kSpecialize]; AGroup 15639 1 [sym_kIf]; AGroup 15641 1 [sym_kInherited];
     AGroup 16866 1 [anon_sym_SEMI]; AGroup 16870 1 [sym_kDelayed]; AGroup 16872 1 [sym_kString];
     AGroup 3 2 syms_5; AGroup 15619 2 syms_6; AGroup 15623 2 syms_7; AGroup 15625 2 syms_8;
     AGroup 15627 2 syms_9; AGroup 15629 2 syms_10; AGroup 15637 2 syms_11;
     AGroup 16868 2 syms_78; SGroup 8200 2 syms_12; SGroup 7203 3 syms_13; SGroup 9360 4 syms_14;
     AGroup 15631 5 syms_15; SGroup 8033 14 syms_17]);
   (65384, 23, [AGroup 5 1 [sym_ppDirective]; AGroup 15615 1 [anon_sym_LBRACK];
     AGroup 15617 1 [anon_sym_LPAREN]; AGroup 15621 1 [anon_sym_POUND];
     AGroup 15635 1 [sym_kSpecialize]; AGroup 15639 1 [sym_kIf]; AGroup 15641 1 [sym_kInherited];
     AGroup 16872 1 [sym_kString]; AGroup 16874 1 [anon_sym_SEMI]; AGroup 16878 1 [sym_kDelayed];
     AGroup 3 2 syms_5; AGroup 15619 2 syms_6; AGroup 15623 2 syms_7; AGroup 15625 2 syms_8;
     AGroup 15627 2 syms_9; AGroup 15629 2 syms_10; AGroup 15637 2 syms_11;
     AGroup 16876 2 syms_78; SGroup 8200 2 syms_12; SGroup 7203 3 syms_13; SGroup 9183 4 syms_14;
     AGroup 15631 5 syms_15; SGroup 8033 14 syms_17]);
   (65485, 22, [AGroup 5 1 [sym_ppDirective]; AGroup 16191 1 [anon_sym_LBRACK];
     AGroup 16193 1 [anon_sym_LPAREN]; AGroup 16197 1 [anon_sym_POUND];
     AGroup 16211 1 [sym_kSpecialize]; AGroup 16215 1 [sym_kIf]; AGroup 16217 1 [sym_kInherited];
     AGroup 16880 1 [anon_sym_SEMI]; AGroup 16882 1 [sym_kString]; AGroup 3 2 syms_5;
     AGroup 16195 2 syms_6; AGroup 16199 2 syms_7; AGroup 16201 2 syms_8; AGroup 16203 2 syms_9;
     AGroup 16205 2 syms_10; AGroup 16213 2 syms_11; SGroup 7995 2 syms_12;
     AGroup 15576 3 syms_79; SGroup 7098 3 syms_13; SGroup 8654 4 syms_14;
     AGroup 16207 5 syms_15; SGroup 7895 14 syms_17]);
   (65584, 4, [AGroup 5 1 [sym_ppDirective]; AGroup 3 2 syms_5; AGroup 15355 7 syms_34;
     AGroup 15353 44 syms_80]);
   (65647, 5, [AGroup 5 1 [sym_ppDirective]; AGroup 3 2 syms_5; AGroup 15473 7 syms_34;
     AGroup 15403 18 syms_36; AGroup 15471 26 syms_81]);
   (65712, 5, [AGroup 5 1 [sym_ppDirective]; AGroup 3 2 syms_5; AGroup 15484 7 syms_34;
     AGroup 15403 18 syms_36; AGroup 15482 26 syms_82]);
   (65777, 5, [AGroup 5 1 [sym_ppDirective]; AGroup 3 2 syms_5; AGroup 15492 7 syms_34;
     AGroup 15403 18 syms_36; AGroup 15490 26 syms_82]);
   (65842, 14, [AGroup 5 1 [sym_ppDirective]; AGroup 13361 1 [sym_kFdiv]; AGroup 13363 1 [sym_kHat];
     AGroup 13375 1 [sym_kAs]; AGroup 13387 1 [sym_kIs]; AGroup 13389 1 [sym_kNot];
     AGroup 16886 1 [anon_sym_LPAREN]; SGroup 5165 1 [sym__exprIsNot]; AGroup 3 2 syms_5;
     AGroup 13353 2 syms_83; AGroup 13357 4 syms_84; AGroup 13355 5 syms_85;
     AGroup 13359 6 syms_86; AGroup 16884 27 syms_87]);
   (65925, 22, [AGroup 5 1 [sym_ppDirective]; AGroup 15647 1 [anon_sym_LBRACK];
     AGroup 15649 1 [anon_sym_LPAREN]; AGroup 15653 1 [anon_sym_POUND];
     AGroup 15667 1 [sym_kSpecialize]; AGroup 15671 1 [sym_kIf]; AGroup 15673 1 [sym_kInherited];
     AGroup 15675 1 [sym_kString]; SGroup 3425 1 [aux_sym_arrInitializer_repeat1];
     AGroup 3 2 syms_5; AGroup 15651 2 syms_6; AGroup 15655 2 syms_7; AGroup 15657 2 syms_8;
     AGroup 15659 2 syms_9; AGroup 15661 2 syms_10; AGroup 15669 2 syms_11;
     SGroup 8129 2 syms_12; SGroup 7100 3 syms_13; SGroup 13654 3 syms_56; SGroup 9686 4 syms_14;
     AGroup 15663 5 syms_15; SGroup 7786 14 syms_17]);
   (66024, 4, [AGroup 5 1 [sym_ppDirective]; AGroup 3 2 syms_5; AGroup 15295 4 syms_25;
     AGroup 15293 47 syms_88]);
   (66087, 23, [AGroup 5 1 [sym_ppDirective]; AGroup 15615 1 [anon_sym_LBRACK];
     AGroup 15617 1 [anon_sym_LPAREN]; AGroup 15621 1 [anon_sym_POUND];
     AGroup 15635 1 [sym_kSpecialize]; AGroup 15639 1 [sym_kIf]; AGroup 15641 1 [sym_kInherited];
     AGroup 16872 1 [sym_kString]; AGroup 16888 1 [anon_sym_SEMI]; AGroup 16892 1 [sym_kDelayed];
     AGroup 3 2 syms_5; AGroup 15619 2 syms_6; AGroup 15623 2 syms_7; AGroup 15625 2 syms_8;
     AGroup 15627 2 syms_9; AGroup 15629 2 syms_10; AGroup 15637 2 syms_11;
     AGroup 16890 2 syms_78; SGroup 8200 2 syms_12; SGroup 7203 3 syms_13; SGroup 9383 4 syms_14;
     AGroup 15631 5 syms_15; SGroup 8033 14 syms_17]);
   (66188, 5, [AGroup 5 1 [sym_ppDirective]; AGroup 3 2 syms_5; AGroup 15401 7 syms_34;
     AGroup 15403 18 syms_36; AGroup 15399 26 syms_82]);
   (66253, 5, [AGroup 5 1 [sym_ppDirective]; AGroup 3 2 syms_5; AGroup 15439 7 syms_34;
     AGroup 15403 18 syms_36; AGroup 15437 26 syms_82]);
   (66318, 5, [AGroup 5 1 [sym_ppDirective]; AGroup 3 2 syms_5; AGroup 15488 7 syms_34;
     AGroup 15403 18 syms_36; AGroup 15486 26 syms_82]);
   (66383, 21, [AGroup 5 1 [sym_ppDirective]; AGroup 16499 1 [anon_sym_LBRACK];
     AGroup 16501 1 [anon_sym_LPAREN]; AGroup 16505 1 [anon_sym_POUND];
     AGroup 16519 1 [sym_kSpecialize]; AGroup 16523 1 [sym_kIf]; AGroup 16525 1 [sym_kInherited];
     AGroup 16894 1 [sym_kString]; AGroup 3 2 syms_5; AGroup 16503 2 syms_6;
     AGroup 16507 2 syms_7; AGroup 16509 2 syms_8; AGroup 16511 2 syms_9; AGroup 16513 2 syms_10;
     AGroup 16521 2 syms_11; SGroup 8924 2 syms_12; SGroup 7300 3 syms_13;
     AGroup 14765 4 syms_89; SGroup 9450 4 syms_14; AGroup 16515 5 syms_15;
     SGroup 8299 14 syms_17]);
   (66480, 23, [AGroup 5 1 [sym_ppDirective]; AGroup 15615 1 [anon_sym_LBRACK];
     AGroup 15617 1 [anon_sym_LPAREN]; AGroup 15621 1 [anon_sym_POUND];
     AGroup 15635 1 [sym_kSpecialize]; AGroup 15639 1 [sym_kIf]; AGroup 15641 1 [sym_kInherited];
     AGroup 16872 1 [sym_kString]; AGroup 16896 1 [anon_sym_SEMI]; AGroup 16900 1 [sym_kDelayed];
     AGroup 3 2 syms_5; AGroup 15619 2 syms_6; AGroup 15623 2 syms_7; AGroup 15625 2 syms_8;
     AGroup 15627 2 syms_9; AGroup 15629 2 syms_10; AGroup 15637 2 syms_11;
     AGroup 16898 2 syms_78; SGroup 8200 2 syms_12; SGroup 7203 3 syms_13; SGroup 9306 4 syms_14;
     AGroup 15631 5 syms_15; SGroup 8033 14 syms_17]);
   (66581, 21, [AGroup 5 1 [sym_ppDirective]; AGroup 15647 1 [anon_sym_LBRACK];
     AGroup 15653 1 [anon_sym_POUND]; AGroup 15667 1 [sym_kSpecialize];
     AGroup 15673 1 [sym_kInherited]; AGroup 15675 1 [sym_kString];
     AGroup 15745 1 [anon_sym_LPAREN]; AGroup 15755 1 [sym_kIf]; AGroup 3 2 syms_5;
     AGroup 15651 2 syms_6; AGroup 15655 2 syms_7; AGroup 15657 2 syms_8; AGroup 15669 2 syms_11;
     AGroup 15747 2 syms_9; AGroup 15749 2 syms_10; SGroup 8129 2 syms_12; SGroup 7100 3 syms_13;
     AGroup 15257 4 syms_90; SGroup 9395 4 syms_14; AGroup 15751 5 syms_15;
     SGroup 8464 14 syms_17]);
   (66678, 22, [AGroup 5 1 [sym_ppDirective]; AGroup 15647 1 [anon_sym_LBRACK];
     AGroup 15649 1 [anon_sym_LPAREN]; AGroup 15653 1 [anon_sym_POUND];
     AGroup 15667 1 [sym_kSpecialize]; AGroup 15671 1 [sym_kIf]; AGroup 15673 1 [sym_kInherited];
     AGroup 15675 1 [sym_kString]; SGroup 3425 1 [aux_sym_arrInitializer_repeat1];
     AGroup 3 2 syms_5; AGroup 15651 2 syms_6; AGroup 15655 2 syms_7; AGroup 15657 2 syms_8;
     AGroup 15659 2 syms_9; AGroup 15661 2 syms_10; AGroup 15669 2 syms_11;
     SGroup 8129 2 syms_12; SGroup 7100 3 syms_13; SGroup 13172 3 syms_56; SGroup 9686 4 syms_14;
     AGroup 15663 5 syms_15; SGroup 7786 14 syms_17]);
   (66777, 5, [AGroup 5 1 [sym_ppDirective]; AGroup 3 2 syms_5; AGroup 15504 7 syms_34;
     AGroup 15403 18 syms_36; AGroup 15502 26 syms_81]);
   (66842, 5, [AGroup 5 1 [sym_ppDirective]; AGroup 3 2 syms_5; AGroup 15496 7 syms_34;
     AGroup 15403 18 syms_36; AGroup 15494 26 syms_82]);
   (66907, 6, [AGroup 5 1 [sym_ppDirective]; AGroup 13363 1 [sym_kHat]; SGroup 5165 1 [sym__exprIsNot];
     AGroup 3 2 syms_5; AGroup 16904 4 syms_25; AGroup 16902 45 syms_91]);
   (66974, 5, [AGroup 5 1 [sym_ppDirective]; AGroup 3 2 syms_5; AGroup 15439 7 syms_34;
     AGroup 15403 18 syms_36; AGroup 15437 26 syms_92]);
   (67039, 5, [AGroup 5 1 [sym_ppDirective]; AGroup 3 2 syms_5; AGroup 15473 4 syms_25;
     AGroup 15403 18 syms_36; AGroup 15471 29 syms_93]);
   (67104, 23, [AGroup 5 1 [sym_ppDirective]; AGroup 15615 1 [anon_sym_LBRACK];
     AGroup 15617 1 [anon_sym_LPAREN]; AGroup 15621 1 [anon_sym_POUND];
     AGroup 15635 1 [sym_kSpecialize]; AGroup 15639 1 [sym_kIf]; AGroup 15641 1 [sym_kInherited];
     AGroup 16872 1 [sym_kString]; AGroup 16906 1 [anon_sym_SEMI]; AGroup 16910 1 [sym_kDelayed];
     AGroup 3 2 syms_5; AGroup 15619 2 syms_6; AGroup 15623 2 syms_7; AGroup 15625 2 syms_8;
     AGroup 15627 2 syms_9; AGroup 15629 2 syms_10; AGroup 15637 2 syms_11;
     AGroup 16908 2 syms_78; SGroup 8200 2 syms_12; SGroup 7203 3 syms_13; SGroup 9073 4 syms_14;
     AGroup 15631 5 syms_15; SGroup 8033 14 syms_17]);
   (67205, 5, [AGroup 5 1 [sym_ppDirective]; AGroup 3 2 syms_5; AGroup 15439 7 syms_34;
     AGroup 15403 18 syms_36; AGroup 15437 26 syms_81]);
   (67270, 22, [AGroup 5 1 [sym_ppDirective]; AGroup 15647 1 [anon_sym_LBRACK];
     AGroup 15649 1 [anon_sym_LPAREN]; AGroup 15653 1 [anon_sym_POUND];
     AGroup 15667 1 [sym_kSpecialize]; AGroup 15671 1 [sym_kIf]; AGroup 15673 1 [sym_kInherited];
     AGroup 15675 1 [sym_kString]; SGroup 3425 1 [aux_sym_arrInitializer_repeat1];
     AGroup 3 2 syms_5; AGroup 15651 2 syms_6; AGroup 15655 2 syms_7; AGroup 15657 2 syms_8;
     AGroup 15659 2 syms_9; AGroup 15661 2 syms_10; AGroup 15669 2 syms_11;
     SGroup 8129 2 syms_12; SGroup 7100 3 syms_13; SGroup 13964 3 syms_56; SGroup 9686 4 syms_14;
     AGroup 15663 5 syms_15; SGroup 7786 14 syms_17]);
   (67369, 5, [AGroup 5 1 [sym_ppDirective]; AGroup 3 2 syms_5; AGroup 15504 4 syms_25;
     AGroup 15403 18 syms_36; AGroup 15502 29 syms_93]);
   (67434, 5, [AGroup 5 1 [sym_ppDirective]; AGroup 3 2 syms_5; AGroup 15488 7 syms_34;
     AGroup 15403 18 syms_36; AGroup 15486 26 syms_92]);
   (67499, 5, [AGroup 5 1 [sym_ppDirective]; AGroup 3 2 syms_5; AGroup 15492 7 syms_34;
     AGroup 15403 18 syms_36; AGroup 15490 26 syms_81]);
   (67564, 5, [AGroup 5 1 [sym_ppDirective]; AGroup 3 2 syms_5; AGroup 15484 4 syms_25;
     AGroup 15403 18 syms_36; AGroup 15482 29 syms_93]);
   (67629, 10, [AGroup 5 1 [sym_ppDirective]; AGroup 13361 1 [sym_kFdiv]; AGroup 13363 1 [sym_kHat];
     AGroup 13375 1 [sym_kAs]; SGroup 5165 1 [sym__exprIsNot]; AGroup 3 2 syms_5;
     AGroup 16914 3 syms_94; AGroup 13357 4 syms_84; AGroup 13359 6 syms_86;
     AGroup 16912 34 syms_95]);
   (67704, 5, [AGroup 5 1 [sym_ppDirective]; AGroup 3 2 syms_5; AGroup 15488 7 syms_34;
     AGroup 15403 18 syms_36; AGroup 15486 26 syms_81]);
   (67769, 21, [AGroup 5 1 [sym_ppDirective]; AGroup 16499 1 [anon_sym_LBRACK];
     AGroup 16501 1 [anon_sym_LPAREN]; AGroup 16505 1 [anon_sym_POUND];
     AGroup 16519 1 [sym_kSpecialize]; AGroup 16523 1 [sym_kIf]; AGroup 16525 1 [sym_kInherited];
     AGroup 16894 1 [sym_kString]; AGroup 3 2 syms_5; AGroup 16503 2 syms_6;
     AGroup 16507 2 syms_7; AGroup 16509 2 syms_8; AGroup 16511 2 syms_9; AGroup 16513 2 syms_10;
     AGroup 16521 2 syms_11; SGroup 8924 2 syms_12; SGroup 7300 3 syms_13;
     AGroup 14747 4 syms_89; SGroup 9438 4 syms_14; AGroup 16515 5 syms_15;
     SGroup 8299 14 syms_17]);
   (67866, 34, [AGroup 5 1 [sym_ppDirective]; AGroup 13347 1 [anon_sym_LBRACK];
     AGroup 13351 1 [aux_sym_ppUsesBlock_token1]; AGroup 13365 1 [sym_identifier];
     AGroup 13367 1 [sym_kGeneric]; AGroup 13369 1 [sym_kOperator]; AGroup 13373 1 [sym_kStrict];
     AGroup 13377 1 [sym_kCase]; AGroup 13379 1 [sym_kClass]; AGroup 13391 1 [sym_kProperty];
     AGroup 13395 1 [sym_kType]; AGroup 16916 1 [anon_sym_SEMI];
     AGroup 16918 1 [anon_sym_LPAREN]; AGroup 16922 1 [sym_kExternal]; AGroup 16924 1 [sym_kEnd];
     SGroup 2 1 [sym__ppIf]; SGroup 6354 1 [sym__visibility]; SGroup 9779 1 [sym_ppBlock];
     SGroup 9835 1 [sym__declOperator]; SGroup 10247 1 [sym__declProc];
     SGroup 10617 1 [sym_rttiAttributes]; SGroup 10730 1 [aux_sym_rttiAttributes_repeat2];
     SGroup 13987 1 [aux_sym_genericArg_repeat1]; SGroup 14434 1 [sym_declVariant];
     SGroup 15590 1 [sym__declClass]; AGroup 3 2 syms_5; AGroup 13381 2 syms_65;
     AGroup 13393 2 syms_66; AGroup 16920 2 syms_67; SGroup 5685 2 syms_68;
     SGroup 10490 3 syms_69; AGroup 13383 4 syms_3; AGroup 13371 6 syms_70; SGroup 6150 6 syms_71]);
   (67989, 9, [AGroup 5 1 [sym_ppDirective]; AGroup 13361 1 [sym_kFdiv]; AGroup 13363 1 [sym_kHat];
     AGroup 13375 1 [sym_kAs]; SGroup 5165 1 [sym__exprIsNot]; AGroup 3 2 syms_5;
     AGroup 16914 3 syms_94; AGroup 13359 6 syms_86; AGroup 16912 38 syms_96]);
   (68062, 22, [AGroup 5 1 [sym_ppDirective]; AGroup 15647 1 [anon_sym_LBRACK];
     AGroup 15649 1 [anon_sym_LPAREN]; AGroup 15653 1 [anon_sym_POUND];
     AGroup 15667 1 [sym_kSpecialize]; AGroup 15671 1 [sym_kIf]; AGroup 15673 1 [sym_kInherited];
     AGroup 15675 1 [sym_kString]; SGroup 3425 1 [aux_sym_arrInitializer_repeat1];
     AGroup 3 2 syms_5; AGroup 15651 2 syms_6; AGroup 15655 2 syms_7; AGroup 15657 2 syms_8;
     AGroup 15659 2 syms_9; AGroup 15661 2 syms_10; AGroup 15669 2 syms_11;
     SGroup 8129 2 syms_12; SGroup 7100 3 syms_13; SGroup 13679 3 syms_56; SGroup 9686 4 syms_14;
     AGroup 15663 5 syms_15; SGroup 7786 14 syms_17]);
   (68161, 5, [AGroup 5 1 [sym_ppDirective]; AGroup 3 2 syms_5; AGroup 15492 4 syms_25;
     AGroup 15403 18 syms_36; AGroup 15490 29 syms_93]);
   (68226, 22, [AGroup 5 1 [sym_ppDirective]; AGroup 16926 1 [anon_sym_LBRACK];
     AGroup 16929 1 [anon_sym_LPAREN]; AGroup 16935 1 [anon_sym_POUND];
     AGroup 16953 1 [sym_kSpecialize]; AGroup 16959 1 [sym_kIf]; AGroup 16962 1 [sym_kInherited];
     AGroup 16965 1 [sym_kString]; SGroup 3425 1 [aux_sym_arrInitializer_repeat1];
     AGroup 3 2 syms_5; AGroup 16932 2 syms_6; AGroup 16938 2 syms_7; AGroup 16941 2 syms_8;
     AGroup 16944 2 syms_9; AGroup 16947 2 syms_10; AGroup 16956 2 syms_11;
     SGroup 8129 2 syms_12; SGroup 7100 3 syms_13; SGroup 15860 3 syms_56; SGroup 9686 4 syms_14;
     AGroup 16950 5 syms_15; SGroup 7786 14 syms_17]);
   (68325, 5, [AGroup 5 1 [sym_ppDirective]; SGroup 5194 1 [sym_kDot]; AGroup 3 2 syms_5;
     AGroup 16970 4 syms_25; AGroup 16968 46 syms_26]);
   (68390, 7, [AGroup 5 1 [sym_ppDirective]; AGroup 16974 1 [anon_sym_COMMA];
     AGroup 16978 1 [anon_sym_DOT]; AGroup 3 2 syms_5; AGroup 16976 2 syms_97;
     AGroup 16981 2 syms_83; AGroup 16972 45 syms_98]);
   (68459, 22, [AGroup 5 1 [sym_ppDirective]; AGroup 15647 1 [anon_sym_LBRACK];
     AGroup 15649 1 [anon_sym_LPAREN]; AGroup 15653 1 [anon_sym_POUND];
     AGroup 15667 1 [sym_kSpecialize]; AGroup 15671 1 [sym_kIf]; AGroup 15673 1 [sym_kInherited];
     AGroup 15675 1 [sym_kString]; SGroup 3425 1 [aux_sym_arrInitializer_repeat1];
     AGroup 3 2 syms_5; AGroup 15651 2 syms_6; AGroup 15655 2 syms_7; AGroup 15657 2 syms_8;
     AGroup 15659 2 syms_9; AGroup 15661 2 syms_10; AGroup 15669 2 syms_11;
     SGroup 8129 2 syms_12; SGroup 7100 3 syms_13; SGroup 13762 3 syms_56; SGroup 9686 4 syms_14;
     AGroup 15663 5 syms_15; SGroup 7786 14 syms_17]);
   (68558, 22, [AGroup 5 1 [sym_ppDirective]; AGroup 15647 1 [anon_sym_LBRACK];
     AGroup 15649 1 [anon_sym_LPAREN]; AGroup 15653 1 [anon_sym_POUND];
     AGroup 15667 1 [sym_kSpecialize]; AGroup 15671 1 [sym_kIf]; AGroup 15673 1 [sym_kInherited];
     AGroup 15675 1 [sym_kString]; SGroup 3425 1 [aux_sym_arrInitializer_repeat1];
     AGroup 3 2 syms_5; AGroup 15651 2 syms_6; AGroup 15655 2 syms_7; AGroup 15657 2 syms_8;
     AGroup 15659 2 syms_9; AGroup 15661 2 syms_10; AGroup 15669 2 syms_11;
     SGroup 8129 2 syms_12; SGroup 7100 3 syms_13; SGroup 13944 3 syms_56; SGroup 9686 4 syms_14;
     AGroup 15663 5 syms_15; SGroup 7786 14 syms_17]);
   (68657, 5, [AGroup 5 1 [sym_ppDirective]; AGroup 3 2 syms_5; AGroup 15401 4 syms_25;
     AGroup 15403 18 syms_36; AGroup 15399 29 syms_93]);
   (68722, 4, [AGroup 5 1 [sym_ppDirective]; AGroup 3 2 syms_5; AGroup 15355 7 syms_34;
     AGroup 15353 44 syms_99]);
   (68785, 4, [AGroup 5 1 [sym_ppDirective]; AGroup 3 2 syms_5; AGroup 15295 7 syms_34;
     AGroup 15293 44 syms_80]);
   (68848, 23, [AGroup 5 1 [sym_ppDirective]; AGroup 15615 1 [anon_sym_LBRACK];
     AGroup 15617 1 [anon_sym_LPAREN]; AGroup 15621 1 [anon_sym_POUND];
     AGroup 15635 1 [sym_kSpecialize]; AGroup 15639 1 [sym_kIf]; AGroup 15641 1 [sym_kInherited];
     AGroup 16872 1 [sym_kString]; AGroup 16984 1 [anon_sym_SEMI]; AGroup 16988 1 [sym_kDelayed];
     AGroup 3 2 syms_5; AGroup 15619 2 syms_6; AGroup 15623 2 syms_7; AGroup 15625 2 syms_8;
     AGroup 15627 2 syms_9; AGroup 15629 2 syms_10; AGroup 15637 2 syms_11;
     AGroup 16986 2 syms_78; SGroup 8200 2 syms_12; SGroup 7203 3 syms_13; SGroup 9118 4 syms_14;
     AGroup 15631 5 syms_15; SGroup 8033 14 syms_17]);
   (68949, 22, [AGroup 5 1 [sym_ppDirective]; AGroup 15647 1 [anon_sym_LBRACK];
     AGroup 15649 1 [anon_sym_LPAREN]; AGroup 15653 1 [anon_sym_POUND];
     AGroup 15667 1 [sym_kSpecialize]; AGroup 15671 1 [sym_kIf]; AGroup 15673 1 [sym_kInherited];
     AGroup 15675 1 [sym_kString]; SGroup 3425 1 [aux_sym_arrInitializer_repeat1];
     AGroup 3 2 syms_5; AGroup 15651 2 syms_6; AGroup 15655 2 syms_7; AGroup 15657 2 syms_8;
     AGroup 15659 2 syms_9; AGroup 15661 2 syms_10; AGroup 15669 2 syms_11;
     SGroup 8129 2 syms_12; SGroup 7100 3 syms_13; SGroup 13257 3 syms_56; SGroup 9686 4 syms_14;
     AGroup 15663 5 syms_15; SGroup 7786 14 syms_17]);
   (69048, 23, [AGroup 5 1 [sym_ppDirective]; AGroup 15615 1 [anon_sym_LBRACK];
     AGroup 15617 1 [anon_sym_LPAREN]; AGroup 15621 1 [anon_sym_POUND];
     AGroup 15635 1 [sym_kSpecialize]; AGroup 15639 1 [sym_kIf]; AGroup 15641 1 [sym_kInherited];
     AGroup 16872 1 [sym_kString]; AGroup 16990 1 [anon_sym_SEMI]; AGroup 16994 1 [sym_kDelayed];
     AGroup 3 2 syms_5; AGroup 15619 2 syms_6; AGroup 15623 2 syms_7; AGroup 15625 2 syms_8;
     AGroup 15627 2 syms_9; AGroup 15629 2 syms_10; AGroup 15637 2 syms_11;
     AGroup 16992 2 syms_78; SGroup 8200 2 syms_12; SGroup 7203 3 syms_13; SGroup 9240 4 syms_14;
     AGroup 15631 5 syms_15; SGroup 8033 14 syms_17]);
   (69149, 5, [AGroup 5 1 [sym_ppDirective]; AGroup 3 2 syms_5; AGroup 15439 4 syms_25;
     AGroup 15403 18 syms_36; AGroup 15437 29 syms_93]);
   (69214, 23, [AGroup 5 1 [sym_ppDirective]; AGroup 15615 1 [anon_sym_LBRACK];
     AGroup 15617 1 [anon_sym_LPAREN]; AGroup 15621 1 [anon_sym_POUND];
     AGroup 15635 1 [sym_kSpecialize]; AGroup 15639 1 [sym_kIf]; AGroup 15641 1 [sym_kInherited];
     AGroup 16872 1 [sym_kString]; AGroup 16996 1 [anon_sym_SEMI]; AGroup 17000 1 [sym_kDelayed];
     AGroup 3 2 syms_5; AGroup 15619 2 syms_6; AGroup 15623 2 syms_7; AGroup 15625 2 syms_8;
     AGroup 15627 2 syms_9; AGroup 15629 2 syms_10; AGroup 15637 2 syms_11;
     AGroup 16998 2 syms_78; SGroup 8200 2 syms_12; SGroup 7203 3 syms_13; SGroup 9335 4 syms_14;
     AGroup 15631 5 syms_15; SGroup 8033 14 syms_17]);
   (69315, 5, [AGroup 5 1 [sym_ppDirective]; AGroup 3 2 syms_5; AGroup 15488 4 syms_25;
     AGroup 15403 18 syms_36; AGroup 15486 29 syms_93]);
   (69380, 5, [AGroup 5 1 [sym_ppDirective]; AGroup 3 2 syms_5; AGroup 15484 7 syms_34;
     AGroup 15403 18 syms_36; AGroup 15482 26 syms_81]);
   (69445, 5, [AGroup 5 1 [sym_ppDirective]; AGroup 3 2 syms_5; AGroup 15496 4 syms_25;
     AGroup 15403 18 syms_36; AGroup 15494 29 syms_93]);
   (69510, 22, [AGroup 5 1 [sym_ppDirective]; AGroup 16191 1 [anon_sym_LBRACK];
     AGroup 16193 1 [anon_sym_LPAREN]; AGroup 16197 1 [anon_sym_POUND];
     AGroup 16211 1 [sym_kSpecialize]; AGroup 16215 1 [sym_kIf]; AGroup 16217 1 [sym_kInherited];
     AGroup 16882 1 [sym_kString]; AGroup 17002 1 [anon_sym_SEMI]; AGroup 3 2 syms_5;
     AGroup 16195 2 syms_6; AGroup 16199 2 syms_7; AGroup 16201 2 syms_8; AGroup 16203 2 syms_9;
     AGroup 16205 2 syms_10; AGroup 16213 2 syms_11; SGroup 7995 2 syms_12;
     AGroup 15576 3 syms_79; SGroup 7098 3 syms_13; SGroup 8869 4 syms_14;
     AGroup 16207 5 syms_15; SGroup 7895 14 syms_17]);
   (69609, 5, [AGroup 5 1 [sym_ppDirective]; AGroup 3 2 syms_5; AGroup 15401 7 syms_34;
     AGroup 15403 18 syms_36; AGroup 15399 26 syms_81]);
   (69674, 23, [AGroup 5 1 [sym_ppDirective]; AGroup 15615 1 [anon_sym_LBRACK];
     AGroup 15617 1 [anon_sym_LPAREN]; AGroup 15621 1 [anon_sym_POUND];
     AGroup 15635 1 [sym_kSpecialize]; AGroup 15639 1 [sym_kIf]; AGroup 15641 1 [sym_kInherited];
     AGroup 16872 1 [sym_kString]; AGroup 17004 1 [anon_sym_SEMI]; AGroup 17008 1 [sym_kDelayed];
     AGroup 3 2 syms_5; AGroup 15619 2 syms_6; AGroup 15623 2 syms_7; AGroup 15625 2 syms_8;
     AGroup 15627 2 syms_9; AGroup 15629 2 syms_10; AGroup 15637 2 syms_11;
     AGroup 17006 2 syms_78; SGroup 8200 2 syms_12; SGroup 7203 3 syms_13; SGroup 9315 4 syms_14;
     AGroup 15631 5 syms_15; SGroup 8033 14 syms_17]);
   (69775, 21, [AGroup 5 1 [sym_ppDirective]; AGroup 15647 1 [anon_sym_LBRACK];
     AGroup 15653 1 [anon_sym_POUND]; AGroup 15667 1 [sym_kSpecialize];
     AGroup 15673 1 [sym_kInherited]; AGroup 15675 1 [sym_kString];
     AGroup 15745 1 [anon_sym_LPAREN]; AGroup 15755 1 [sym_kIf]; AGroup 3 2 syms_5;
     AGroup 15651 2 syms_6; AGroup 15655 2 syms_7; AGroup 15657 2 syms_8; AGroup 15669 2 syms_11;
     AGroup 15747 2 syms_9; AGroup 15749 2 syms_10; SGroup 8129 2 syms_12; SGroup 7100 3 syms_13;
     AGroup 15179 4 syms_90; SGroup 9607 4 syms_14; AGroup 15751 5 syms_15;
     SGroup 8464 14 syms_17]);
   (69872, 22, [AGroup 5 1 [sym_ppDirective]; AGroup 16101 1 [anon_sym_LBRACK];
     AGroup 16103 1 [anon_sym_LPAREN]; AGroup 16107 1 [anon_sym_POUND];
     AGroup 16121 1 [sym_kSpecialize]; AGroup 16125 1 [sym_kIf]; AGroup 16127 1 [sym_kInherited];
     AGroup 17010 1 [anon_sym_SEMI]; AGroup 17012 1 [sym_kString]; AGroup 3 2 syms_5;
     AGroup 16105 2 syms_6; AGroup 16109 2 syms_7; AGroup 16111 2 syms_8; AGroup 16113 2 syms_9;
     AGroup 16115 2 syms_10; AGroup 16123 2 syms_11; SGroup 8060 2 syms_12;
     AGroup 15576 3 syms_43; SGroup 7068 3 syms_13; SGroup 8672 4 syms_14;
     AGroup 16117 5 syms_15; SGroup 7822 14 syms_17]);
   (69971, 22, [AGroup 5 1 [sym_ppDirective]; AGroup 15647 1 [anon_sym_LBRACK];
     AGroup 15649 1 [anon_sym_LPAREN]; AGroup 15653 1 [anon_sym_POUND];
     AGroup 15667 1 [sym_kSpecialize]; AGroup 15671 1 [sym_kIf]; AGroup 15673 1 [sym_kInherited];
     AGroup 15675 1 [sym_kString]; SGroup 3425 1 [aux_sym_arrInitializer_repeat1];
     AGroup 3 2 syms_5; AGroup 15651 2 syms_6; AGroup 15655 2 syms_7; AGroup 15657 2 syms_8;
     AGroup 15659 2 syms_9; AGroup 15661 2 syms_10; AGroup 15669 2 syms_11;
     SGroup 8129 2 syms_12; SGroup 7100 3 syms_13; SGroup 13409 3 syms_56; SGroup 9686 4 syms_14;
     AGroup 15663 5 syms_15; SGroup 7786 14 syms_17]);
   (70070, 10, [AGroup 5 1 [sym_ppDirective]; AGroup 13361 1 [sym_kFdiv]; AGroup 13363 1 [sym_kHat];
     AGroup 13375 1 [sym_kAs]; SGroup 5165 1 [sym__exprIsNot]; AGroup 3 2 syms_5;
     AGroup 17016 3 syms_94; AGroup 13357 4 syms_84; AGroup 13359 6 syms_86;
     AGroup 17014 34 syms_95]);
   (70145, 22, [AGroup 5 1 [sym_ppDirective]; AGroup 15647 1 [anon_sym_LBRACK];
     AGroup 15649 1 [anon_sym_LPAREN]; AGroup 15653 1 [anon_sym_POUND];
     AGroup 15667 1 [sym_kSpecialize]; AGroup 15671 1 [sym_kIf]; AGroup 15673 1 [sym_kInherited];
     AGroup 15675 1 [sym_kString]; SGroup 3425 1 [aux_sym_arrInitializer_repeat1];
     AGroup 3 2 syms_5; AGroup 15651 2 syms_6; AGroup 15655 2 syms_7; AGroup 15657 2 syms_8;
     AGroup 15659 2 syms_9; AGroup 15661 2 syms_10; AGroup 15669 2 syms_11;
     SGroup 8129 2 syms_12; SGroup 7100 3 syms_13; SGroup 13728 3 syms_56; SGroup 9686 4 syms_14;
     AGroup 15663 5 syms_15; SGroup 7786 14 syms_17]);
   (70244, 5, [AGroup 5 1 [sym_ppDirective]; AGroup 3 2 syms_5; AGroup 15496 7 syms_34;
     AGroup 15403 18 syms_36; AGroup 15494 26 syms_92]);
   (70309, 4, [AGroup 5 1 [sym_ppDirective]; AGroup 3 2 syms_5; AGroup 15295 7 syms_34;
     AGroup 15293 44 syms_100]);
   (70372, 5, [AGroup 5 1 [sym_ppDirective]; AGroup 3 2 syms_5; AGroup 15401 7 syms_34;
     AGroup 15403 18 syms_36; AGroup 15399 26 syms_92]);
   (70437, 5, [AGroup 5 1 [sym_ppDirective]; AGroup 3 2 syms_5; AGroup 15484 7 syms_34;
     AGroup 15403 18 syms_36; AGroup 15482 26 syms_92]);
   (70502, 5, [AGroup 5 1 [sym_ppDirective]; AGroup 3 2 syms_5; AGroup 15492 7 syms_34;
     AGroup 15403 18 syms_36; AGroup 15490 26 syms_92]);
   (70567, 22, [AGroup 5 1 [sym_ppDirective]; AGroup 15647 1 [anon_sym_LBRACK];
     AGroup 15649 1 [anon_sym_LPAREN]; AGroup 15653 1 [anon_sym_POUND];
     AGroup 15667 1 [sym_kSpecialize]; AGroup 15671 1 [sym_kIf]; AGroup 15673 1 [sym_kInherited];
     AGroup 15675 1 [sym_kString]; SGroup 3425 1 [aux_sym_arrInitializer_repeat1];
     AGroup 3 2 syms_5; AGroup 15651 2 syms_6; AGroup 15655 2 syms_7; AGroup 15657 2 syms_8;
     AGroup 15659 2 syms_9; AGroup 15661 2 syms_10; AGroup 15669 2 syms_11;
     SGroup 8129 2 syms_12; SGroup 7100 3 syms_13; SGroup 13486 3 syms_56; SGroup 9686 4 syms_14;
     AGroup 15663 5 syms_15; SGroup 7786 14 syms_17]);
   (70666, 4, [AGroup 5 1 [sym_ppDirective]; AGroup 3 2 syms_5; AGroup 15355 7 syms_34;
     AGroup 15353 44 syms_100]);
   (70729, 23, [AGroup 5 1 [sym_ppDirective]; AGroup 15615 1 [anon_sym_LBRACK];
     AGroup 15617 1 [anon_sym_LPAREN]; AGroup 15621 1 [anon_sym_POUND];
     AGroup 15635 1 [sym_kSpecialize]; AGroup 15639 1 [sym_kIf]; AGroup 15641 1 [sym_kInherited];
     AGroup 16872 1 [sym_kString]; AGroup 17018 1 [anon_sym_SEMI]; AGroup 17022 1 [sym_kDelayed];
     AGroup 3 2 syms_5; AGroup 15619 2 syms_6; AGroup 15623 2 syms_7; AGroup 15625 2 syms_8;
     AGroup 15627 2 syms_9; AGroup 15629 2 syms_10; AGroup 15637 2 syms_11;
     AGroup 17020 2 syms_78; SGroup 8200 2 syms_12; SGroup 7203 3 syms_13; SGroup 9140 4 syms_14;
     AGroup 15631 5 syms_15; SGroup 8033 14 syms_17]);
   (70830, 4, [AGroup 5 1 [sym_ppDirective]; AGroup 3 2 syms_5; AGroup 15355 4 syms_25;
     AGroup 15353 47 syms_88]);
   (70893, 34, [AGroup 5 1 [sym_ppDirective]; AGroup 13347 1 [anon_sym_LBRACK];
     AGroup 13351 1 [aux_sym_ppUsesBlock_token1]; AGroup 13365 1 [sym_identifier];
     AGroup 13367 1 [sym_kGeneric]; AGroup 13369 1 [sym_kOperator]; AGroup 13373 1 [sym_kStrict];
     AGroup 13377 1 [sym_kCase]; AGroup 13379 1 [sym_kClass]; AGroup 13391 1 [sym_kProperty];
     AGroup 13395 1 [sym_kType]; AGroup 16703 1 [anon_sym_SEMI];
     AGroup 16705 1 [anon_sym_LPAREN]; AGroup 16709 1 [sym_kExternal]; AGroup 16711 1 [sym_kEnd];
     SGroup 2 1 [sym__ppIf]; SGroup 6354 1 [sym__visibility]; SGroup 9779 1 [sym_ppBlock];
     SGroup 9835 1 [sym__declOperator]; SGroup 10247 1 [sym__declProc];
     SGroup 10617 1 [sym_rttiAttributes]; SGroup 10730 1 [aux_sym_rttiAttributes_repeat2];
     SGroup 13987 1 [aux_sym_genericArg_repeat1]; SGroup 14434 1 [sym_declVariant];
     SGroup 15808 1 [sym__declClass]; AGroup 3 2 syms_5; AGroup 13381 2 syms_65;
     AGroup 13393 2 syms_66; AGroup 16707 2 syms_67; SGroup 5685 2 syms_68;
     SGroup 10490 3 syms_69; AGroup 13383 4 syms_3; AGroup 13371 6 syms_70; SGroup 6150 6 syms_71])
  ].

Definition small_part1 : list small_run :=
  small_runs_2759
  ++ small_runs_2859
  ++ small_runs_2959
  ++ small_runs_3059
  ++ small_runs_3159
  ++ small_runs_3259
  ++ small_runs_3359.
