(* ===== verification/SmallTable2.v ===== *)
(** * The compressed parse table of [parser.c], states 3459 to 4358

    The record of each small state in [ts_small_parse_table], as the source
    writes it: its index in the array, the number of its groups, and the groups
    in their order, each with its value, the number of its symbols and the
    symbols. *)

From S2P Require Import Prelude.
From S2P Require Import Symbols.
From S2P Require Import ParseTypes.
From S2P Require Import SmallSymbols.

(** States 3459 to 3558. *)
Definition small_runs_3459 : list small_run :=
  [
   (71016, 5, [AGroup 5 1 [sym_ppDirective]; AGroup 3 2 syms_5; AGroup 15496 7 syms_34;
     AGroup 15403 18 syms_36; AGroup 15494 26 syms_81]);
   (71081, 5, [AGroup 5 1 [sym_ppDirective]; AGroup 3 2 syms_5; AGroup 15473 7 syms_34;
     AGroup 15403 18 syms_36; AGroup 15471 26 syms_92]);
   (71146, 4, [AGroup 5 1 [sym_ppDirective]; AGroup 3 2 syms_5; AGroup 15295 7 syms_34;
     AGroup 15293 44 syms_99]);
   (71209, 23, [AGroup 5 1 [sym_ppDirective]; AGroup 15615 1 [anon_sym_LBRACK];
     AGroup 15617 1 [anon_sym_LPAREN]; AGroup 15621 1 [anon_sym_POUND];
     AGroup 15635 1 [sym_kSpecialize]; AGroup 15639 1 [sym_kIf]; AGroup 15641 1 [sym_kInherited];
     AGroup 16872 1 [sym_kString]; AGroup 17024 1 [anon_sym_SEMI]; AGroup 17028 1 [sym_kDelayed];
     AGroup 3 2 syms_5; AGroup 15619 2 syms_6; AGroup 15623 2 syms_7; AGroup 15625 2 syms_8;
     AGroup 15627 2 syms_9; AGroup 15629 2 syms_10; AGroup 15637 2 syms_11;
     AGroup 17026 2 syms_78; SGroup 8200 2 syms_12; SGroup 7203 3 syms_13; SGroup 9364 4 syms_14;
     AGroup 15631 5 syms_15; SGroup 8033 14 syms_17]);
   (71310, 5, [AGroup 5 1 [sym_ppDirective]; AGroup 3 2 syms_5; AGroup 15473 7 syms_34;
     AGroup 15403 18 syms_36; AGroup 15471 26 syms_82]);
   (71375, 5, [AGroup 5 1 [sym_ppDirective]; SGroup 5165 1 [sym__exprIsNot]; AGroup 3 2 syms_5;
     AGroup 17032 4 syms_25; AGroup 17030 46 syms_26]);
   (71440, 34, [AGroup 5 1 [sym_ppDirective]; AGroup 13347 1 [anon_sym_LBRACK];
     AGroup 13351 1 [aux_sym_ppUsesBlock_token1]; AGroup 13365 1 [sym_identifier];
     AGroup 13367 1 [sym_kGeneric]; AGroup 13369 1 [sym_kOperator]; AGroup 13373 1 [sym_kStrict];
     AGroup 13377 1 [sym_kCase]; AGroup 13379 1 [sym_kClass]; AGroup 13391 1 [sym_kProperty];
     AGroup 13395 1 [sym_kType]; AGroup 16916 1 [anon_sym_SEMI];
     AGroup 16918 1 [anon_sym_LPAREN]; AGroup 16922 1 [sym_kExternal]; AGroup 17034 1 [sym_kEnd];
     SGroup 2 1 [sym__ppIf]; SGroup 6354 1 [sym__visibility]; SGroup 9779 1 [sym_ppBlock];
     SGroup 9835 1 [sym__declOperator]; SGroup 10247 1 [sym__declProc];
     SGroup 10617 1 [sym_rttiAttributes]; SGroup 10730 1 [aux_sym_rttiAttributes_repeat2];
     SGroup 13987 1 [aux_sym_genericArg_repeat1]; SGroup 14434 1 [sym_declVariant];
     SGroup 14804 1 [sym__declClass]; AGroup 3 2 syms_5; AGroup 13381 2 syms_65;
     AGroup 13393 2 syms_66; AGroup 16920 2 syms_67; SGroup 5685 2 syms_68;
     SGroup 10490 3 syms_69; AGroup 13383 4 syms_3; AGroup 13371 6 syms_70; SGroup 6150 6 syms_71]);
   (71563, 9, [AGroup 5 1 [sym_ppDirective]; AGroup 17038 1 [anon_sym_LBRACK];
     AGroup 17040 1 [anon_sym_LPAREN]; AGroup 17042 1 [anon_sym_DOT]; AGroup 17044 1 [sym_kLt];
     SGroup 5194 1 [sym_kDot]; AGroup 3 2 syms_5; AGroup 17046 2 syms_101;
     AGroup 17036 44 syms_102]);
   (71636, 23, [AGroup 5 1 [sym_ppDirective]; AGroup 15615 1 [anon_sym_LBRACK];
     AGroup 15617 1 [anon_sym_LPAREN]; AGroup 15621 1 [anon_sym_POUND];
     AGroup 15635 1 [sym_kSpecialize]; AGroup 15639 1 [sym_kIf]; AGroup 15641 1 [sym_kInherited];
     AGroup 16872 1 [sym_kString]; AGroup 17048 1 [anon_sym_SEMI]; AGroup 17052 1 [sym_kDelayed];
     AGroup 3 2 syms_5; AGroup 15619 2 syms_6; AGroup 15623 2 syms_7; AGroup 15625 2 syms_8;
     AGroup 15627 2 syms_9; AGroup 15629 2 syms_10; AGroup 15637 2 syms_11;
     AGroup 17050 2 syms_78; SGroup 8200 2 syms_12; SGroup 7203 3 syms_13; SGroup 9326 4 syms_14;
     AGroup 15631 5 syms_15; SGroup 8033 14 syms_17]);
   (71737, 6, [AGroup 5 1 [sym_ppDirective]; AGroup 13363 1 [sym_kHat]; SGroup 5165 1 [sym__exprIsNot];
     AGroup 3 2 syms_5; AGroup 16914 4 syms_25; AGroup 16912 45 syms_91]);
   (71804, 23, [AGroup 5 1 [sym_ppDirective]; AGroup 15615 1 [anon_sym_LBRACK];
     AGroup 15617 1 [anon_sym_LPAREN]; AGroup 15621 1 [anon_sym_POUND];
     AGroup 15635 1 [sym_kSpecialize]; AGroup 15639 1 [sym_kIf]; AGroup 15641 1 [sym_kInherited];
     AGroup 16872 1 [sym_kString]; AGroup 17054 1 [anon_sym_SEMI]; AGroup 17058 1 [sym_kDelayed];
     AGroup 3 2 syms_5; AGroup 15619 2 syms_6; AGroup 15623 2 syms_7; AGroup 15625 2 syms_8;
     AGroup 15627 2 syms_9; AGroup 15629 2 syms_10; AGroup 15637 2 syms_11;
     AGroup 17056 2 syms_78; SGroup 8200 2 syms_12; SGroup 7203 3 syms_13; SGroup 9293 4 syms_14;
     AGroup 15631 5 syms_15; SGroup 8033 14 syms_17]);
   (71905, 22, [AGroup 5 1 [sym_ppDirective]; AGroup 15647 1 [anon_sym_LBRACK];
     AGroup 15649 1 [anon_sym_LPAREN]; AGroup 15653 1 [anon_sym_POUND];
     AGroup 15667 1 [sym_kSpecialize]; AGroup 15671 1 [sym_kIf]; AGroup 15673 1 [sym_kInherited];
     AGroup 15675 1 [sym_kString]; SGroup 3425 1 [aux_sym_arrInitializer_repeat1];
     AGroup 3 2 syms_5; AGroup 15651 2 syms_6; AGroup 15655 2 syms_7; AGroup 15657 2 syms_8;
     AGroup 15659 2 syms_9; AGroup 15661 2 syms_10; AGroup 15669 2 syms_11;
     SGroup 8129 2 syms_12; SGroup 7100 3 syms_13; SGroup 13527 3 syms_56; SGroup 9686 4 syms_14;
     AGroup 15663 5 syms_15; SGroup 7786 14 syms_17]);
   (72004, 25, [AGroup 5 1 [sym_ppDirective]; AGroup 15011 1 [anon_sym_LBRACK];
     AGroup 15013 1 [anon_sym_LPAREN]; AGroup 15017 1 [anon_sym_POUND];
     AGroup 15029 1 [sym_kSpecialize]; AGroup 15035 1 [sym_kIf]; AGroup 15037 1 [sym_kInherited];
     AGroup 15039 1 [sym_kString]; AGroup 17060 1 [anon_sym_RBRACK];
     AGroup 17064 1 [sym_identifier]; SGroup 4010 1 [aux_sym_caseLabel_repeat1];
     SGroup 4117 1 [aux_sym_rttiAttributes_repeat1]; SGroup 12989 1 [sym_range];
     AGroup 3 2 syms_5; AGroup 15015 2 syms_6; AGroup 15019 2 syms_7; AGroup 15021 2 syms_8;
     AGroup 15023 2 syms_9; AGroup 15025 2 syms_10; AGroup 15033 2 syms_11;
     SGroup 8466 2 syms_12; SGroup 7201 3 syms_13; AGroup 17062 4 syms_57; SGroup 9601 4 syms_14;
     SGroup 8487 14 syms_17]);
   (72109, 5, [AGroup 5 1 [sym_ppDirective]; AGroup 3 2 syms_5; AGroup 15504 7 syms_34;
     AGroup 15403 18 syms_36; AGroup 15502 26 syms_82]);
   (72174, 23, [AGroup 5 1 [sym_ppDirective]; AGroup 15615 1 [anon_sym_LBRACK];
     AGroup 15617 1 [anon_sym_LPAREN]; AGroup 15621 1 [anon_sym_POUND];
     AGroup 15635 1 [sym_kSpecialize]; AGroup 15639 1 [sym_kIf]; AGroup 15641 1 [sym_kInherited];
     AGroup 16872 1 [sym_kString]; AGroup 17066 1 [anon_sym_SEMI]; AGroup 17070 1 [sym_kDelayed];
     AGroup 3 2 syms_5; AGroup 15619 2 syms_6; AGroup 15623 2 syms_7; AGroup 15625 2 syms_8;
     AGroup 15627 2 syms_9; AGroup 15629 2 syms_10; AGroup 15637 2 syms_11;
     AGroup 17068 2 syms_78; SGroup 8200 2 syms_12; SGroup 7203 3 syms_13; SGroup 9031 4 syms_14;
     AGroup 15631 5 syms_15; SGroup 8033 14 syms_17]);
   (72275, 5, [AGroup 5 1 [sym_ppDirective]; AGroup 3 2 syms_5; AGroup 15504 7 syms_34;
     AGroup 15403 18 syms_36; AGroup 15502 26 syms_92]);
   (72340, 23, [AGroup 5 1 [sym_ppDirective]; AGroup 47 1 [anon_sym_LPAREN]; AGroup 51 1 [anon_sym_POUND];
     AGroup 73 1 [sym_kSpecialize]; AGroup 105 1 [sym_kInherited]; AGroup 117 1 [sym_kString];
     AGroup 11060 1 [anon_sym_LBRACK]; AGroup 15829 1 [sym_kIf]; AGroup 17072 1 [sym_kVar];
     SGroup 11653 1 [sym_varAssignDef]; SGroup 13940 1 [sym_assignment]; AGroup 3 2 syms_5;
     AGroup 49 2 syms_6; AGroup 53 2 syms_7; AGroup 55 2 syms_8; AGroup 61 2 syms_9;
     AGroup 63 2 syms_10; AGroup 11080 2 syms_11; SGroup 7888 2 syms_12; SGroup 6994 3 syms_13;
     SGroup 8976 4 syms_14; AGroup 65 5 syms_15; SGroup 7765 14 syms_17]);
   (72440, 23, [AGroup 5 1 [sym_ppDirective]; AGroup 15647 1 [anon_sym_LBRACK];
     AGroup 15653 1 [anon_sym_POUND]; AGroup 15667 1 [sym_kSpecialize]; AGroup 15671 1 [sym_kIf];
     AGroup 15673 1 [sym_kInherited]; AGroup 15745 1 [anon_sym_LPAREN];
     AGroup 17074 1 [anon_sym_RPAREN]; AGroup 17076 1 [sym_kString];
     SGroup 4095 1 [aux_sym_exprArgs_repeat1]; SGroup 15221 1 [sym_exprArgs]; AGroup 3 2 syms_5;
     AGroup 15651 2 syms_6; AGroup 15655 2 syms_7; AGroup 15657 2 syms_8; AGroup 15659 2 syms_9;
     AGroup 15661 2 syms_10; AGroup 15669 2 syms_11; SGroup 8129 2 syms_12;
     SGroup 7100 3 syms_13; SGroup 8456 4 syms_14; AGroup 15663 5 syms_15; SGroup 7786 14 syms_17]);
   (72540, 23, [AGroup 5 1 [sym_ppDirective]; AGroup 15647 1 [anon_sym_LBRACK];
     AGroup 15653 1 [anon_sym_POUND]; AGroup 15667 1 [sym_kSpecialize]; AGroup 15671 1 [sym_kIf];
     AGroup 15673 1 [sym_kInherited]; AGroup 15745 1 [anon_sym_LPAREN];
     AGroup 17076 1 [sym_kString]; AGroup 17078 1 [anon_sym_RPAREN];
     SGroup 4095 1 [aux_sym_exprArgs_repeat1]; SGroup 15233 1 [sym_exprArgs]; AGroup 3 2 syms_5;
     AGroup 15651 2 syms_6; AGroup 15655 2 syms_7; AGroup 15657 2 syms_8; AGroup 15659 2 syms_9;
     AGroup 15661 2 syms_10; AGroup 15669 2 syms_11; SGroup 8129 2 syms_12;
     SGroup 7100 3 syms_13; SGroup 8456 4 syms_14; AGroup 15663 5 syms_15; SGroup 7786 14 syms_17]);
   (72640, 4, [AGroup 5 1 [sym_ppDirective]; AGroup 3 2 syms_5; AGroup 17082 4 syms_25;
     AGroup 17080 46 syms_26]);
   (72702, 5, [AGroup 5 1 [sym_ppDirective]; AGroup 3 2 syms_5; AGroup 15492 4 syms_25;
     AGroup 15403 18 syms_36; AGroup 15490 28 syms_103]);
   (72766, 23, [AGroup 5 1 [sym_ppDirective]; AGroup 15647 1 [anon_sym_LBRACK];
     AGroup 15653 1 [anon_sym_POUND]; AGroup 15667 1 [sym_kSpecialize]; AGroup 15671 1 [sym_kIf];
     AGroup 15673 1 [sym_kInherited]; AGroup 15745 1 [anon_sym_LPAREN];
     AGroup 17076 1 [sym_kString]; AGroup 17084 1 [anon_sym_RPAREN];
     SGroup 4095 1 [aux_sym_exprArgs_repeat1]; SGroup 15275 1 [sym_exprArgs]; AGroup 3 2 syms_5;
     AGroup 15651 2 syms_6; AGroup 15655 2 syms_7; AGroup 15657 2 syms_8; AGroup 15659 2 syms_9;
     AGroup 15661 2 syms_10; AGroup 15669 2 syms_11; SGroup 8129 2 syms_12;
     SGroup 7100 3 syms_13; SGroup 8456 4 syms_14; AGroup 15663 5 syms_15; SGroup 7786 14 syms_17]);
   (72866, 23, [AGroup 5 1 [sym_ppDirective]; AGroup 15647 1 [anon_sym_LBRACK];
     AGroup 15653 1 [anon_sym_POUND]; AGroup 15667 1 [sym_kSpecialize]; AGroup 15671 1 [sym_kIf];
     AGroup 15673 1 [sym_kInherited]; AGroup 15745 1 [anon_sym_LPAREN];
     AGroup 17076 1 [sym_kString]; AGroup 17086 1 [anon_sym_RPAREN];
     SGroup 4095 1 [aux_sym_exprArgs_repeat1]; SGroup 15284 1 [sym_exprArgs]; AGroup 3 2 syms_5;
     AGroup 15651 2 syms_6; AGroup 15655 2 syms_7; AGroup 15657 2 syms_8; AGroup 15659 2 syms_9;
     AGroup 15661 2 syms_10; AGroup 15669 2 syms_11; SGroup 8129 2 syms_12;
     SGroup 7100 3 syms_13; SGroup 8456 4 syms_14; AGroup 15663 5 syms_15; SGroup 7786 14 syms_17]);
   (72966, 5, [AGroup 5 1 [sym_ppDirective]; AGroup 3 2 syms_5; AGroup 15484 7 syms_34;
     AGroup 15403 18 syms_36; AGroup 15482 25 syms_104]);
   (73030, 23, [AGroup 5 1 [sym_ppDirective]; AGroup 15011 1 [anon_sym_LBRACK];
     AGroup 15013 1 [anon_sym_LPAREN]; AGroup 15017 1 [anon_sym_POUND];
     AGroup 15029 1 [sym_kSpecialize]; AGroup 15035 1 [sym_kIf]; AGroup 15037 1 [sym_kInherited];
     AGroup 15039 1 [sym_kString]; AGroup 17088 1 [anon_sym_RBRACK];
     SGroup 3948 1 [aux_sym_caseLabel_repeat1]; SGroup 13628 1 [sym_range]; AGroup 3 2 syms_5;
     AGroup 15015 2 syms_6; AGroup 15019 2 syms_7; AGroup 15021 2 syms_8; AGroup 15023 2 syms_9;
     AGroup 15025 2 syms_10; AGroup 15033 2 syms_11; SGroup 8466 2 syms_12;
     SGroup 7201 3 syms_13; SGroup 9565 4 syms_14; AGroup 15027 5 syms_15; SGroup 7990 14 syms_17]);
   (73130, 23, [AGroup 5 1 [sym_ppDirective]; AGroup 15647 1 [anon_sym_LBRACK];
     AGroup 15653 1 [anon_sym_POUND]; AGroup 15667 1 [sym_kSpecialize]; AGroup 15671 1 [sym_kIf];
     AGroup 15673 1 [sym_kInherited]; AGroup 15745 1 [anon_sym_LPAREN];
     AGroup 17076 1 [sym_kString]; AGroup 17090 1 [anon_sym_RPAREN];
     SGroup 4095 1 [aux_sym_exprArgs_repeat1]; SGroup 15325 1 [sym_exprArgs]; AGroup 3 2 syms_5;
     AGroup 15651 2 syms_6; AGroup 15655 2 syms_7; AGroup 15657 2 syms_8; AGroup 15659 2 syms_9;
     AGroup 15661 2 syms_10; AGroup 15669 2 syms_11; SGroup 8129 2 syms_12;
     SGroup 7100 3 syms_13; SGroup 8456 4 syms_14; AGroup 15663 5 syms_15; SGroup 7786 14 syms_17]);
   (73230, 23, [AGroup 5 1 [sym_ppDirective]; AGroup 15647 1 [anon_sym_LBRACK];
     AGroup 15653 1 [anon_sym_POUND]; AGroup 15667 1 [sym_kSpecialize]; AGroup 15671 1 [sym_kIf];
     AGroup 15673 1 [sym_kInherited]; AGroup 15745 1 [anon_sym_LPAREN];
     AGroup 17076 1 [sym_kString]; AGroup 17092 1 [anon_sym_RPAREN];
     SGroup 4095 1 [aux_sym_exprArgs_repeat1]; SGroup 15335 1 [sym_exprArgs]; AGroup 3 2 syms_5;
     AGroup 15651 2 syms_6; AGroup 15655 2 syms_7; AGroup 15657 2 syms_8; AGroup 15659 2 syms_9;
     AGroup 15661 2 syms_10; AGroup 15669 2 syms_11; SGroup 8129 2 syms_12;
     SGroup 7100 3 syms_13; SGroup 8456 4 syms_14; AGroup 15663 5 syms_15; SGroup 7786 14 syms_17]);
   (73330, 4, [AGroup 5 1 [sym_ppDirective]; AGroup 3 2 syms_5; AGroup 17096 4 syms_25;
     AGroup 17094 46 syms_26]);
   (73392, 23, [AGroup 5 1 [sym_ppDirective]; AGroup 15011 1 [anon_sym_LBRACK];
     AGroup 15013 1 [anon_sym_LPAREN]; AGroup 15017 1 [anon_sym_POUND];
     AGroup 15029 1 [sym_kSpecialize]; AGroup 15035 1 [sym_kIf]; AGroup 15037 1 [sym_kInherited];
     AGroup 15039 1 [sym_kString]; AGroup 17098 1 [anon_sym_RBRACK];
     SGroup 3950 1 [aux_sym_caseLabel_repeat1]; SGroup 13838 1 [sym_range]; AGroup 3 2 syms_5;
     AGroup 15015 2 syms_6; AGroup 15019 2 syms_7; AGroup 15021 2 syms_8; AGroup 15023 2 syms_9;
     AGroup 15025 2 syms_10; AGroup 15033 2 syms_11; SGroup 8466 2 syms_12;
     SGroup 7201 3 syms_13; SGroup 9573 4 syms_14; AGroup 15027 5 syms_15; SGroup 7990 14 syms_17]);
   (73492, 23, [AGroup 5 1 [sym_ppDirective]; AGroup 15647 1 [anon_sym_LBRACK];
     AGroup 15653 1 [anon_sym_POUND]; AGroup 15667 1 [sym_kSpecialize]; AGroup 15671 1 [sym_kIf];
     AGroup 15673 1 [sym_kInherited]; AGroup 15745 1 [anon_sym_LPAREN];
     AGroup 17076 1 [sym_kString]; AGroup 17100 1 [anon_sym_RPAREN];
     SGroup 4095 1 [aux_sym_exprArgs_repeat1]; SGroup 15398 1 [sym_exprArgs]; AGroup 3 2 syms_5;
     AGroup 15651 2 syms_6; AGroup 15655 2 syms_7; AGroup 15657 2 syms_8; AGroup 15659 2 syms_9;
     AGroup 15661 2 syms_10; AGroup 15669 2 syms_11; SGroup 8129 2 syms_12;
     SGroup 7100 3 syms_13; SGroup 8456 4 syms_14; AGroup 15663 5 syms_15; SGroup 7786 14 syms_17]);
   (73592, 23, [AGroup 5 1 [sym_ppDirective]; AGroup 15647 1 [anon_sym_LBRACK];
     AGroup 15653 1 [anon_sym_POUND]; AGroup 15667 1 [sym_kSpecialize]; AGroup 15671 1 [sym_kIf];
     AGroup 15673 1 [sym_kInherited]; AGroup 15745 1 [anon_sym_LPAREN];
     AGroup 17076 1 [sym_kString]; AGroup 17102 1 [anon_sym_RPAREN];
     SGroup 4095 1 [aux_sym_exprArgs_repeat1]; SGroup 15408 1 [sym_exprArgs]; AGroup 3 2 syms_5;
     AGroup 15651 2 syms_6; AGroup 15655 2 syms_7; AGroup 15657 2 syms_8; AGroup 15659 2 syms_9;
     AGroup 15661 2 syms_10; AGroup 15669 2 syms_11; SGroup 8129 2 syms_12;
     SGroup 7100 3 syms_13; SGroup 8456 4 syms_14; AGroup 15663 5 syms_15; SGroup 7786 14 syms_17]);
   (73692, 21, [AGroup 5 1 [sym_ppDirective]; AGroup 16535 1 [anon_sym_LBRACK];
     AGroup 16537 1 [anon_sym_LPAREN]; AGroup 16541 1 [anon_sym_POUND];
     AGroup 16555 1 [sym_kSpecialize]; AGroup 16559 1 [sym_kIf]; AGroup 16561 1 [sym_kInherited];
     AGroup 17104 1 [sym_kString]; AGroup 3 2 syms_5; AGroup 16539 2 syms_6;
     AGroup 16543 2 syms_7; AGroup 16545 2 syms_8; AGroup 16547 2 syms_9; AGroup 16549 2 syms_10;
     AGroup 16557 2 syms_11; SGroup 8601 2 syms_12; AGroup 14765 3 syms_105;
     SGroup 7304 3 syms_13; SGroup 9547 4 syms_14; AGroup 16551 5 syms_15; SGroup 8287 14 syms_17]);
   (73788, 4, [AGroup 5 1 [sym_ppDirective]; AGroup 3 2 syms_5; AGroup 17108 4 syms_25;
     AGroup 17106 46 syms_26]);
   (73850, 23, [AGroup 5 1 [sym_ppDirective]; AGroup 15647 1 [anon_sym_LBRACK];
     AGroup 15653 1 [anon_sym_POUND]; AGroup 15667 1 [sym_kSpecialize]; AGroup 15671 1 [sym_kIf];
     AGroup 15673 1 [sym_kInherited]; AGroup 15745 1 [anon_sym_LPAREN];
     AGroup 17076 1 [sym_kString]; AGroup 17110 1 [anon_sym_RPAREN];
     SGroup 4095 1 [aux_sym_exprArgs_repeat1]; SGroup 14930 1 [sym_exprArgs]; AGroup 3 2 syms_5;
     AGroup 15651 2 syms_6; AGroup 15655 2 syms_7; AGroup 15657 2 syms_8; AGroup 15659 2 syms_9;
     AGroup 15661 2 syms_10; AGroup 15669 2 syms_11; SGroup 8129 2 syms_12;
     SGroup 7100 3 syms_13; SGroup 8456 4 syms_14; AGroup 15663 5 syms_15; SGroup 7786 14 syms_17]);
   (73950, 23, [AGroup 5 1 [sym_ppDirective]; AGroup 15647 1 [anon_sym_LBRACK];
     AGroup 15653 1 [anon_sym_POUND]; AGroup 15667 1 [sym_kSpecialize]; AGroup 15671 1 [sym_kIf];
     AGroup 15673 1 [sym_kInherited]; AGroup 15745 1 [anon_sym_LPAREN];
     AGroup 17076 1 [sym_kString]; AGroup 17112 1 [anon_sym_RPAREN];
     SGroup 4095 1 [aux_sym_exprArgs_repeat1]; SGroup 14797 1 [sym_exprArgs]; AGroup 3 2 syms_5;
     AGroup 15651 2 syms_6; AGroup 15655 2 syms_7; AGroup 15657 2 syms_8; AGroup 15659 2 syms_9;
     AGroup 15661 2 syms_10; AGroup 15669 2 syms_11; SGroup 8129 2 syms_12;
     SGroup 7100 3 syms_13; SGroup 8456 4 syms_14; AGroup 15663 5 syms_15; SGroup 7786 14 syms_17]);
   (74050, 4, [AGroup 5 1 [sym_ppDirective]; AGroup 3 2 syms_5; AGroup 17116 4 syms_25;
     AGroup 17114 46 syms_26]);
   (74112, 4, [AGroup 5 1 [sym_ppDirective]; AGroup 3 2 syms_5; AGroup 17120 4 syms_25;
     AGroup 17118 46 syms_26]);
   (74174, 5, [AGroup 5 1 [sym_ppDirective]; AGroup 3 2 syms_5; AGroup 15492 7 syms_34;
     AGroup 15403 18 syms_36; AGroup 15490 25 syms_106]);
   (74238, 21, [AGroup 5 1 [sym_ppDirective]; AGroup 15647 1 [anon_sym_LBRACK];
     AGroup 15649 1 [anon_sym_LPAREN]; AGroup 15653 1 [anon_sym_POUND];
     AGroup 15667 1 [sym_kSpecialize]; AGroup 15671 1 [sym_kIf]; AGroup 15673 1 [sym_kInherited];
     AGroup 15675 1 [sym_kString]; AGroup 3 2 syms_5; AGroup 15651 2 syms_6;
     AGroup 15655 2 syms_7; AGroup 15657 2 syms_8; AGroup 15659 2 syms_9; AGroup 15661 2 syms_10;
     AGroup 15669 2 syms_11; SGroup 8129 2 syms_12; SGroup 7100 3 syms_13;
     SGroup 11837 3 syms_56; SGroup 9686 4 syms_14; AGroup 15663 5 syms_15;
     SGroup 7786 14 syms_17]);
   (74334, 5, [AGroup 5 1 [sym_ppDirective]; AGroup 3 2 syms_5; AGroup 15401 7 syms_34;
     AGroup 15403 18 syms_36; AGroup 15399 25 syms_106]);
   (74398, 4, [AGroup 5 1 [sym_ppDirective]; AGroup 3 2 syms_5; AGroup 17124 4 syms_25;
     AGroup 17122 46 syms_26]);
   (74460, 4, [AGroup 5 1 [sym_ppDirective]; AGroup 3 2 syms_5; AGroup 17128 4 syms_25;
     AGroup 17126 46 syms_26]);
   (74522, 12, [AGroup 17130 1 [anon_sym_RBRACK]; AGroup 17132 1 [sym_kDispId];
     AGroup 17134 1 [sym_kPublic]; AGroup 17136 1 [sym_kExternal]; AGroup 17138 1 [sym_kMessage];
     AGroup 17140 1 [sym_kDeprecated]; AGroup 17142 1 [sym_kExport]; AGroup 17144 1 [sym_kAlias];
     SGroup 3956 1 [aux_sym__procAttribute_repeat1]; SGroup 13185 2 syms_107; AGroup 3 3 syms_1;
     AGroup 1016 39 syms_33]);
   (74600, 23, [AGroup 5 1 [sym_ppDirective]; AGroup 15011 1 [anon_sym_LBRACK];
     AGroup 15013 1 [anon_sym_LPAREN]; AGroup 15017 1 [anon_sym_POUND];
     AGroup 15029 1 [sym_kSpecialize]; AGroup 15035 1 [sym_kIf]; AGroup 15037 1 [sym_kInherited];
     AGroup 15039 1 [sym_kString]; AGroup 17146 1 [anon_sym_RBRACK];
     SGroup 3868 1 [aux_sym_caseLabel_repeat1]; SGroup 14003 1 [sym_range]; AGroup 3 2 syms_5;
     AGroup 15015 2 syms_6; AGroup 15019 2 syms_7; AGroup 15021 2 syms_8; AGroup 15023 2 syms_9;
     AGroup 15025 2 syms_10; AGroup 15033 2 syms_11; SGroup 8466 2 syms_12;
     SGroup 7201 3 syms_13; SGroup 9530 4 syms_14; AGroup 15027 5 syms_15; SGroup 7990 14 syms_17]);
   (74700, 23, [AGroup 5 1 [sym_ppDirective]; AGroup 15647 1 [anon_sym_LBRACK];
     AGroup 15653 1 [anon_sym_POUND]; AGroup 15667 1 [sym_kSpecialize]; AGroup 15671 1 [sym_kIf];
     AGroup 15673 1 [sym_kInherited]; AGroup 15745 1 [anon_sym_LPAREN];
     AGroup 17076 1 [sym_kString]; AGroup 17148 1 [anon_sym_RPAREN];
     SGroup 4095 1 [aux_sym_exprArgs_repeat1]; SGroup 14504 1 [sym_exprArgs]; AGroup 3 2 syms_5;
     AGroup 15651 2 syms_6; AGroup 15655 2 syms_7; AGroup 15657 2 syms_8; AGroup 15659 2 syms_9;
     AGroup 15661 2 syms_10; AGroup 15669 2 syms_11; SGroup 8129 2 syms_12;
     SGroup 7100 3 syms_13; SGroup 8456 4 syms_14; AGroup 15663 5 syms_15; SGroup 7786 14 syms_17]);
   (74800, 5, [AGroup 5 1 [sym_ppDirective]; AGroup 3 2 syms_5; AGroup 15439 4 syms_25;
     AGroup 15403 18 syms_36; AGroup 15437 28 syms_103]);
   (74864, 23, [AGroup 5 1 [sym_ppDirective]; AGroup 47 1 [anon_sym_LPAREN]; AGroup 51 1 [anon_sym_POUND];
     AGroup 73 1 [sym_kSpecialize]; AGroup 105 1 [sym_kInherited]; AGroup 117 1 [sym_kString];
     AGroup 11060 1 [anon_sym_LBRACK]; AGroup 15829 1 [sym_kIf]; AGroup 17072 1 [sym_kVar];
     SGroup 11606 1 [sym_varAssignDef]; SGroup 13854 1 [sym_assignment]; AGroup 3 2 syms_5;
     AGroup 49 2 syms_6; AGroup 53 2 syms_7; AGroup 55 2 syms_8; AGroup 61 2 syms_9;
     AGroup 63 2 syms_10; AGroup 11080 2 syms_11; SGroup 7888 2 syms_12; SGroup 6994 3 syms_13;
     SGroup 8668 4 syms_14; AGroup 65 5 syms_15; SGroup 7765 14 syms_17]);
   (74964, 23, [AGroup 5 1 [sym_ppDirective]; AGroup 15647 1 [anon_sym_LBRACK];
     AGroup 15653 1 [anon_sym_POUND]; AGroup 15667 1 [sym_kSpecialize]; AGroup 15671 1 [sym_kIf];
     AGroup 15673 1 [sym_kInherited]; AGroup 15745 1 [anon_sym_LPAREN];
     AGroup 17076 1 [sym_kString]; AGroup 17150 1 [anon_sym_RPAREN];
     SGroup 4095 1 [aux_sym_exprArgs_repeat1]; SGroup 14520 1 [sym_exprArgs]; AGroup 3 2 syms_5;
     AGroup 15651 2 syms_6; AGroup 15655 2 syms_7; AGroup 15657 2 syms_8; AGroup 15659 2 syms_9;
     AGroup 15661 2 syms_10; AGroup 15669 2 syms_11; SGroup 8129 2 syms_12;
     SGroup 7100 3 syms_13; SGroup 8456 4 syms_14; AGroup 15663 5 syms_15; SGroup 7786 14 syms_17]);
   (75064, 5, [AGroup 5 1 [sym_ppDirective]; AGroup 3 2 syms_5; AGroup 15488 4 syms_25;
     AGroup 15403 18 syms_36; AGroup 15486 28 syms_103]);
   (75128, 5, [AGroup 5 1 [sym_ppDirective]; AGroup 3 2 syms_5; AGroup 15488 7 syms_34;
     AGroup 15403 18 syms_36; AGroup 15486 25 syms_106]);
   (75192, 4, [AGroup 5 1 [sym_ppDirective]; AGroup 3 2 syms_5; AGroup 17154 4 syms_25;
     AGroup 17152 46 syms_26]);
   (75254, 5, [AGroup 5 1 [sym_ppDirective]; AGroup 3 2 syms_5; AGroup 15401 7 syms_34;
     AGroup 15403 18 syms_36; AGroup 15399 25 syms_104]);
   (75318, 4, [AGroup 5 1 [sym_ppDirective]; AGroup 3 2 syms_5; AGroup 17158 4 syms_25;
     AGroup 17156 46 syms_26]);
   (75380, 23, [AGroup 5 1 [sym_ppDirective]; AGroup 15011 1 [anon_sym_LBRACK];
     AGroup 15013 1 [anon_sym_LPAREN]; AGroup 15017 1 [anon_sym_POUND];
     AGroup 15029 1 [sym_kSpecialize]; AGroup 15035 1 [sym_kIf]; AGroup 15037 1 [sym_kInherited];
     AGroup 15039 1 [sym_kString]; AGroup 17160 1 [anon_sym_RBRACK];
     SGroup 3957 1 [aux_sym_declArray_repeat1]; SGroup 13276 1 [sym_range]; AGroup 3 2 syms_5;
     AGroup 15015 2 syms_6; AGroup 15019 2 syms_7; AGroup 15021 2 syms_8; AGroup 15023 2 syms_9;
     AGroup 15025 2 syms_10; AGroup 15033 2 syms_11; SGroup 8466 2 syms_12;
     SGroup 7201 3 syms_13; SGroup 9610 4 syms_14; AGroup 15027 5 syms_15; SGroup 7990 14 syms_17]);
   (75480, 5, [AGroup 5 1 [sym_ppDirective]; AGroup 3 2 syms_5; AGroup 15439 7 syms_34;
     AGroup 15403 18 syms_36; AGroup 15437 25 syms_104]);
   (75544, 23, [AGroup 5 1 [sym_ppDirective]; AGroup 15011 1 [anon_sym_LBRACK];
     AGroup 15013 1 [anon_sym_LPAREN]; AGroup 15017 1 [anon_sym_POUND];
     AGroup 15029 1 [sym_kSpecialize]; AGroup 15035 1 [sym_kIf]; AGroup 15037 1 [sym_kInherited];
     AGroup 15039 1 [sym_kString]; AGroup 17162 1 [anon_sym_RBRACK];
     SGroup 3873 1 [aux_sym_caseLabel_repeat1]; SGroup 13357 1 [sym_range]; AGroup 3 2 syms_5;
     AGroup 15015 2 syms_6; AGroup 15019 2 syms_7; AGroup 15021 2 syms_8; AGroup 15023 2 syms_9;
     AGroup 15025 2 syms_10; AGroup 15033 2 syms_11; SGroup 8466 2 syms_12;
     SGroup 7201 3 syms_13; SGroup 9604 4 syms_14; AGroup 15027 5 syms_15; SGroup 7990 14 syms_17]);
   (75644, 23, [AGroup 5 1 [sym_ppDirective]; AGroup 15647 1 [anon_sym_LBRACK];
     AGroup 15653 1 [anon_sym_POUND]; AGroup 15667 1 [sym_kSpecialize]; AGroup 15671 1 [sym_kIf];
     AGroup 15673 1 [sym_kInherited]; AGroup 15745 1 [anon_sym_LPAREN];
     AGroup 17076 1 [sym_kString]; AGroup 17164 1 [anon_sym_RPAREN];
     SGroup 4095 1 [aux_sym_exprArgs_repeat1]; SGroup 14748 1 [sym_exprArgs]; AGroup 3 2 syms_5;
     AGroup 15651 2 syms_6; AGroup 15655 2 syms_7; AGroup 15657 2 syms_8; AGroup 15659 2 syms_9;
     AGroup 15661 2 syms_10; AGroup 15669 2 syms_11; SGroup 8129 2 syms_12;
     SGroup 7100 3 syms_13; SGroup 8456 4 syms_14; AGroup 15663 5 syms_15; SGroup 7786 14 syms_17]);
   (75744, 5, [AGroup 5 1 [sym_ppDirective]; AGroup 3 2 syms_5; AGroup 15488 7 syms_34;
     AGroup 15403 18 syms_36; AGroup 15486 25 syms_104]);
   (75808, 23, [AGroup 5 1 [sym_ppDirective]; AGroup 15647 1 [anon_sym_LBRACK];
     AGroup 15653 1 [anon_sym_POUND]; AGroup 15667 1 [sym_kSpecialize]; AGroup 15671 1 [sym_kIf];
     AGroup 15673 1 [sym_kInherited]; AGroup 15745 1 [anon_sym_LPAREN];
     AGroup 17076 1 [sym_kString]; AGroup 17166 1 [anon_sym_RPAREN];
     SGroup 4095 1 [aux_sym_exprArgs_repeat1]; SGroup 14778 1 [sym_exprArgs]; AGroup 3 2 syms_5;
     AGroup 15651 2 syms_6; AGroup 15655 2 syms_7; AGroup 15657 2 syms_8; AGroup 15659 2 syms_9;
     AGroup 15661 2 syms_10; AGroup 15669 2 syms_11; SGroup 8129 2 syms_12;
     SGroup 7100 3 syms_13; SGroup 8456 4 syms_14; AGroup 15663 5 syms_15; SGroup 7786 14 syms_17]);
   (75908, 23, [AGroup 5 1 [sym_ppDirective]; AGroup 15011 1 [anon_sym_LBRACK];
     AGroup 15013 1 [anon_sym_LPAREN]; AGroup 15017 1 [anon_sym_POUND];
     AGroup 15029 1 [sym_kSpecialize]; AGroup 15035 1 [sym_kIf]; AGroup 15037 1 [sym_kInherited];
     AGroup 15039 1 [sym_kString]; AGroup 17168 1 [anon_sym_RBRACK];
     SGroup 4010 1 [aux_sym_caseLabel_repeat1]; SGroup 12989 1 [sym_range]; AGroup 3 2 syms_5;
     AGroup 15015 2 syms_6; AGroup 15019 2 syms_7; AGroup 15021 2 syms_8; AGroup 15023 2 syms_9;
     AGroup 15025 2 syms_10; AGroup 15033 2 syms_11; SGroup 8466 2 syms_12;
     SGroup 7201 3 syms_13; SGroup 9601 4 syms_14; AGroup 15027 5 syms_15; SGroup 7990 14 syms_17]);
   (76008, 4, [AGroup 5 1 [sym_ppDirective]; AGroup 3 2 syms_5; AGroup 17172 4 syms_25;
     AGroup 17170 46 syms_26]);
   (76070, 23, [AGroup 5 1 [sym_ppDirective]; AGroup 15011 1 [anon_sym_LBRACK];
     AGroup 15013 1 [anon_sym_LPAREN]; AGroup 15017 1 [anon_sym_POUND];
     AGroup 15029 1 [sym_kSpecialize]; AGroup 15035 1 [sym_kIf]; AGroup 15037 1 [sym_kInherited];
     AGroup 15039 1 [sym_kString]; AGroup 17174 1 [anon_sym_RBRACK];
     SGroup 3850 1 [aux_sym_caseLabel_repeat1]; SGroup 13755 1 [sym_range]; AGroup 3 2 syms_5;
     AGroup 15015 2 syms_6; AGroup 15019 2 syms_7; AGroup 15021 2 syms_8; AGroup 15023 2 syms_9;
     AGroup 15025 2 syms_10; AGroup 15033 2 syms_11; SGroup 8466 2 syms_12;
     SGroup 7201 3 syms_13; SGroup 9474 4 syms_14; AGroup 15027 5 syms_15; SGroup 7990 14 syms_17]);
   (76170, 23, [AGroup 5 1 [sym_ppDirective]; AGroup 15011 1 [anon_sym_LBRACK];
     AGroup 15013 1 [anon_sym_LPAREN]; AGroup 15017 1 [anon_sym_POUND];
     AGroup 15029 1 [sym_kSpecialize]; AGroup 15035 1 [sym_kIf]; AGroup 15037 1 [sym_kInherited];
     AGroup 15039 1 [sym_kString]; AGroup 17176 1 [anon_sym_RBRACK];
     SGroup 3958 1 [aux_sym_declArray_repeat1]; SGroup 13313 1 [sym_range]; AGroup 3 2 syms_5;
     AGroup 15015 2 syms_6; AGroup 15019 2 syms_7; AGroup 15021 2 syms_8; AGroup 15023 2 syms_9;
     AGroup 15025 2 syms_10; AGroup 15033 2 syms_11; SGroup 8466 2 syms_12;
     SGroup 7201 3 syms_13; SGroup 9616 4 syms_14; AGroup 15027 5 syms_15; SGroup 7990 14 syms_17]);
   (76270, 5, [AGroup 5 1 [sym_ppDirective]; AGroup 3 2 syms_5; AGroup 15504 7 syms_34;
     AGroup 15403 18 syms_36; AGroup 15502 25 syms_106]);
   (76334, 21, [AGroup 5 1 [sym_ppDirective]; AGroup 15711 1 [anon_sym_LBRACK];
     AGroup 15717 1 [anon_sym_POUND]; AGroup 15731 1 [sym_kSpecialize]; AGroup 15735 1 [sym_kIf];
     AGroup 15737 1 [sym_kInherited]; AGroup 17178 1 [anon_sym_LPAREN];
     AGroup 17180 1 [sym_kString]; AGroup 3 2 syms_5; AGroup 15715 2 syms_6;
     AGroup 15719 2 syms_7; AGroup 15721 2 syms_8; AGroup 15723 2 syms_9; AGroup 15725 2 syms_10;
     AGroup 15733 2 syms_11; SGroup 9361 2 syms_12; SGroup 7548 3 syms_13;
     SGroup 13609 3 syms_56; SGroup 9676 4 syms_14; AGroup 15727 5 syms_15;
     SGroup 8938 14 syms_17]);
   (76430, 23, [AGroup 5 1 [sym_ppDirective]; AGroup 15011 1 [anon_sym_LBRACK];
     AGroup 15013 1 [anon_sym_LPAREN]; AGroup 15017 1 [anon_sym_POUND];
     AGroup 15029 1 [sym_kSpecialize]; AGroup 15035 1 [sym_kIf]; AGroup 15037 1 [sym_kInherited];
     AGroup 15039 1 [sym_kString]; AGroup 17182 1 [anon_sym_RBRACK];
     SGroup 3893 1 [aux_sym_caseLabel_repeat1]; SGroup 13564 1 [sym_range]; AGroup 3 2 syms_5;
     AGroup 15015 2 syms_6; AGroup 15019 2 syms_7; AGroup 15021 2 syms_8; AGroup 15023 2 syms_9;
     AGroup 15025 2 syms_10; AGroup 15033 2 syms_11; SGroup 8466 2 syms_12;
     SGroup 7201 3 syms_13; SGroup 9443 4 syms_14; AGroup 15027 5 syms_15; SGroup 7990 14 syms_17]);
   (76530, 12, [AGroup 17132 1 [sym_kDispId]; AGroup 17134 1 [sym_kPublic]; AGroup 17136 1 [sym_kExternal];
     AGroup 17138 1 [sym_kMessage]; AGroup 17140 1 [sym_kDeprecated];
     AGroup 17142 1 [sym_kExport]; AGroup 17144 1 [sym_kAlias]; AGroup 17184 1 [anon_sym_RBRACK];
     SGroup 3973 1 [aux_sym__procAttribute_repeat1]; SGroup 13280 2 syms_107; AGroup 3 3 syms_1;
     AGroup 1016 39 syms_33]);
   (76608, 23, [AGroup 5 1 [sym_ppDirective]; AGroup 15647 1 [anon_sym_LBRACK];
     AGroup 15653 1 [anon_sym_POUND]; AGroup 15667 1 [sym_kSpecialize]; AGroup 15671 1 [sym_kIf];
     AGroup 15673 1 [sym_kInherited]; AGroup 15745 1 [anon_sym_LPAREN];
     AGroup 17076 1 [sym_kString]; AGroup 17186 1 [anon_sym_RPAREN];
     SGroup 4095 1 [aux_sym_exprArgs_repeat1]; SGroup 15312 1 [sym_exprArgs]; AGroup 3 2 syms_5;
     AGroup 15651 2 syms_6; AGroup 15655 2 syms_7; AGroup 15657 2 syms_8; AGroup 15659 2 syms_9;
     AGroup 15661 2 syms_10; AGroup 15669 2 syms_11; SGroup 8129 2 syms_12;
     SGroup 7100 3 syms_13; SGroup 8456 4 syms_14; AGroup 15663 5 syms_15; SGroup 7786 14 syms_17]);
   (76708, 23, [AGroup 5 1 [sym_ppDirective]; AGroup 15011 1 [anon_sym_LBRACK];
     AGroup 15013 1 [anon_sym_LPAREN]; AGroup 15017 1 [anon_sym_POUND];
     AGroup 15029 1 [sym_kSpecialize]; AGroup 15035 1 [sym_kIf]; AGroup 15037 1 [sym_kInherited];
     AGroup 15039 1 [sym_kString]; AGroup 17188 1 [anon_sym_RBRACK];
     SGroup 3848 1 [aux_sym_caseLabel_repeat1]; SGroup 13495 1 [sym_range]; AGroup 3 2 syms_5;
     AGroup 15015 2 syms_6; AGroup 15019 2 syms_7; AGroup 15021 2 syms_8; AGroup 15023 2 syms_9;
     AGroup 15025 2 syms_10; AGroup 15033 2 syms_11; SGroup 8466 2 syms_12;
     SGroup 7201 3 syms_13; SGroup 9603 4 syms_14; AGroup 15027 5 syms_15; SGroup 7990 14 syms_17]);
   (76808, 4, [AGroup 5 1 [sym_ppDirective]; AGroup 3 2 syms_5; AGroup 15295 7 syms_34;
     AGroup 15293 43 syms_108]);
   (76870, 22, [AGroup 5 1 [sym_ppDirective]; AGroup 16161 1 [anon_sym_LBRACK];
     AGroup 16163 1 [anon_sym_LPAREN]; AGroup 16167 1 [anon_sym_POUND];
     AGroup 16181 1 [sym_kSpecialize]; AGroup 16185 1 [sym_kIf]; AGroup 16187 1 [sym_kInherited];
     AGroup 17190 1 [anon_sym_SEMI]; AGroup 17192 1 [sym_kString]; AGroup 3 2 syms_5;
     AGroup 15576 2 syms_109; AGroup 16165 2 syms_6; AGroup 16169 2 syms_7;
     AGroup 16171 2 syms_8; AGroup 16173 2 syms_9; AGroup 16175 2 syms_10;
     AGroup 16183 2 syms_11; SGroup 8481 2 syms_12; SGroup 7166 3 syms_13; SGroup 9193 4 syms_14;
     AGroup 16177 5 syms_15; SGroup 8150 14 syms_17]);
   (76968, 23, [AGroup 5 1 [sym_ppDirective]; AGroup 15011 1 [anon_sym_LBRACK];
     AGroup 15013 1 [anon_sym_LPAREN]; AGroup 15017 1 [anon_sym_POUND];
     AGroup 15029 1 [sym_kSpecialize]; AGroup 15035 1 [sym_kIf]; AGroup 15037 1 [sym_kInherited];
     AGroup 15039 1 [sym_kString]; AGroup 17194 1 [anon_sym_RBRACK];
     SGroup 3877 1 [aux_sym_caseLabel_repeat1]; SGroup 13896 1 [sym_range]; AGroup 3 2 syms_5;
     AGroup 15015 2 syms_6; AGroup 15019 2 syms_7; AGroup 15021 2 syms_8; AGroup 15023 2 syms_9;
     AGroup 15025 2 syms_10; AGroup 15033 2 syms_11; SGroup 8466 2 syms_12;
     SGroup 7201 3 syms_13; SGroup 9410 4 syms_14; AGroup 15027 5 syms_15; SGroup 7990 14 syms_17]);
   (77068, 23, [AGroup 5 1 [sym_ppDirective]; AGroup 15647 1 [anon_sym_LBRACK];
     AGroup 15653 1 [anon_sym_POUND]; AGroup 15667 1 [sym_kSpecialize]; AGroup 15671 1 [sym_kIf];
     AGroup 15673 1 [sym_kInherited]; AGroup 15745 1 [anon_sym_LPAREN];
     AGroup 17076 1 [sym_kString]; AGroup 17196 1 [anon_sym_RPAREN];
     SGroup 4095 1 [aux_sym_exprArgs_repeat1]; SGroup 14922 1 [sym_exprArgs]; AGroup 3 2 syms_5;
     AGroup 15651 2 syms_6; AGroup 15655 2 syms_7; AGroup 15657 2 syms_8; AGroup 15659 2 syms_9;
     AGroup 15661 2 syms_10; AGroup 15669 2 syms_11; SGroup 8129 2 syms_12;
     SGroup 7100 3 syms_13; SGroup 8456 4 syms_14; AGroup 15663 5 syms_15; SGroup 7786 14 syms_17]);
   (77168, 22, [AGroup 5 1 [sym_ppDirective]; AGroup 16277 1 [anon_sym_LBRACK];
     AGroup 16279 1 [anon_sym_LPAREN]; AGroup 16283 1 [anon_sym_POUND];
     AGroup 16297 1 [sym_kSpecialize]; AGroup 16301 1 [sym_kIf]; AGroup 16303 1 [sym_kInherited];
     AGroup 16880 1 [anon_sym_SEMI]; AGroup 17198 1 [sym_kString]; AGroup 3 2 syms_5;
     AGroup 15576 2 syms_110; AGroup 16281 2 syms_6; AGroup 16285 2 syms_7;
     AGroup 16287 2 syms_8; AGroup 16289 2 syms_9; AGroup 16291 2 syms_10;
     AGroup 16299 2 syms_11; SGroup 8374 2 syms_12; SGroup 7217 3 syms_13; SGroup 9255 4 syms_14;
     AGroup 16293 5 syms_15; SGroup 8074 14 syms_17]);
   (77266, 21, [AGroup 5 1 [sym_ppDirective]; AGroup 16337 1 [anon_sym_LBRACK];
     AGroup 16343 1 [anon_sym_POUND]; AGroup 16357 1 [sym_kSpecialize]; AGroup 16361 1 [sym_kIf];
     AGroup 16363 1 [sym_kInherited]; AGroup 17200 1 [anon_sym_LPAREN];
     AGroup 17202 1 [sym_kString]; AGroup 3 2 syms_5; AGroup 16341 2 syms_6;
     AGroup 16345 2 syms_7; AGroup 16347 2 syms_8; AGroup 16349 2 syms_9; AGroup 16351 2 syms_10;
     AGroup 16359 2 syms_11; SGroup 7828 2 syms_12; SGroup 7011 3 syms_13;
     SGroup 11609 3 syms_56; SGroup 8289 4 syms_14; AGroup 16353 5 syms_15;
     SGroup 7566 14 syms_17]);
   (77362, 21, [AGroup 5 1 [sym_ppDirective]; AGroup 15677 1 [anon_sym_LBRACK];
     AGroup 15679 1 [anon_sym_LPAREN]; AGroup 15683 1 [anon_sym_POUND];
     AGroup 15697 1 [sym_kSpecialize]; AGroup 15701 1 [sym_kIf]; AGroup 15703 1 [sym_kInherited];
     AGroup 17206 1 [sym_kString]; AGroup 3 2 syms_5; AGroup 15681 2 syms_6;
     AGroup 15685 2 syms_7; AGroup 15687 2 syms_8; AGroup 15689 2 syms_9; AGroup 15691 2 syms_10;
     AGroup 15699 2 syms_11; SGroup 8792 2 syms_12; AGroup 17204 3 syms_111;
     SGroup 7321 3 syms_13; SGroup 9402 4 syms_14; AGroup 15693 5 syms_15; SGroup 8443 14 syms_17]);
   (77458, 23, [AGroup 5 1 [sym_ppDirective]; AGroup 15647 1 [anon_sym_LBRACK];
     AGroup 15653 1 [anon_sym_POUND]; AGroup 15667 1 [sym_kSpecialize]; AGroup 15671 1 [sym_kIf];
     AGroup 15673 1 [sym_kInherited]; AGroup 15745 1 [anon_sym_LPAREN];
     AGroup 17076 1 [sym_kString]; AGroup 17208 1 [anon_sym_RPAREN];
     SGroup 4095 1 [aux_sym_exprArgs_repeat1]; SGroup 15252 1 [sym_exprArgs]; AGroup 3 2 syms_5;
     AGroup 15651 2 syms_6; AGroup 15655 2 syms_7; AGroup 15657 2 syms_8; AGroup 15659 2 syms_9;
     AGroup 15661 2 syms_10; AGroup 15669 2 syms_11; SGroup 8129 2 syms_12;
     SGroup 7100 3 syms_13; SGroup 8456 4 syms_14; AGroup 15663 5 syms_15; SGroup 7786 14 syms_17]);
   (77558, 12, [AGroup 17132 1 [sym_kDispId]; AGroup 17134 1 [sym_kPublic]; AGroup 17136 1 [sym_kExternal];
     AGroup 17138 1 [sym_kMessage]; AGroup 17140 1 [sym_kDeprecated];
     AGroup 17142 1 [sym_kExport]; AGroup 17144 1 [sym_kAlias]; AGroup 17210 1 [anon_sym_RBRACK];
     SGroup 3963 1 [aux_sym__procAttribute_repeat1]; SGroup 13602 2 syms_107; AGroup 3 3 syms_1;
     AGroup 1016 39 syms_33]);
   (77636, 23, [AGroup 5 1 [sym_ppDirective]; AGroup 15647 1 [anon_sym_LBRACK];
     AGroup 15653 1 [anon_sym_POUND]; AGroup 15667 1 [sym_kSpecialize]; AGroup 15671 1 [sym_kIf];
     AGroup 15673 1 [sym_kInherited]; AGroup 15745 1 [anon_sym_LPAREN];
     AGroup 17076 1 [sym_kString]; AGroup 17212 1 [anon_sym_RPAREN];
     SGroup 4095 1 [aux_sym_exprArgs_repeat1]; SGroup 14940 1 [sym_exprArgs]; AGroup 3 2 syms_5;
     AGroup 15651 2 syms_6; AGroup 15655 2 syms_7; AGroup 15657 2 syms_8; AGroup 15659 2 syms_9;
     AGroup 15661 2 syms_10; AGroup 15669 2 syms_11; SGroup 8129 2 syms_12;
     SGroup 7100 3 syms_13; SGroup 8456 4 syms_14; AGroup 15663 5 syms_15; SGroup 7786 14 syms_17]);
   (77736, 23, [AGroup 5 1 [sym_ppDirective]; AGroup 15647 1 [anon_sym_LBRACK];
     AGroup 15653 1 [anon_sym_POUND]; AGroup 15667 1 [sym_kSpecialize]; AGroup 15671 1 [sym_kIf];
     AGroup 15673 1 [sym_kInherited]; AGroup 15745 1 [anon_sym_LPAREN];
     AGroup 17076 1 [sym_kString]; AGroup 17214 1 [anon_sym_RPAREN];
     SGroup 4095 1 [aux_sym_exprArgs_repeat1]; SGroup 15248 1 [sym_exprArgs]; AGroup 3 2 syms_5;
     AGroup 15651 2 syms_6; AGroup 15655 2 syms_7; AGroup 15657 2 syms_8; AGroup 15659 2 syms_9;
     AGroup 15661 2 syms_10; AGroup 15669 2 syms_11; SGroup 8129 2 syms_12;
     SGroup 7100 3 syms_13; SGroup 8456 4 syms_14; AGroup 15663 5 syms_15; SGroup 7786 14 syms_17]);
   (77836, 23, [AGroup 5 1 [sym_ppDirective]; AGroup 15647 1 [anon_sym_LBRACK];
     AGroup 15653 1 [anon_sym_POUND]; AGroup 15667 1 [sym_kSpecialize]; AGroup 15671 1 [sym_kIf];
     AGroup 15673 1 [sym_kInherited]; AGroup 15745 1 [anon_sym_LPAREN];
     AGroup 17076 1 [sym_kString]; AGroup 17216 1 [anon_sym_RPAREN];
     SGroup 4095 1 [aux_sym_exprArgs_repeat1]; SGroup 15368 1 [sym_exprArgs]; AGroup 3 2 syms_5;
     AGroup 15651 2 syms_6; AGroup 15655 2 syms_7; AGroup 15657 2 syms_8; AGroup 15659 2 syms_9;
     AGroup 15661 2 syms_10; AGroup 15669 2 syms_11; SGroup 8129 2 syms_12;
     SGroup 7100 3 syms_13; SGroup 8456 4 syms_14; AGroup 15663 5 syms_15; SGroup 7786 14 syms_17]);
   (77936, 23, [AGroup 5 1 [sym_ppDirective]; AGroup 15011 1 [anon_sym_LBRACK];
     AGroup 15013 1 [anon_sym_LPAREN]; AGroup 15017 1 [anon_sym_POUND];
     AGroup 15029 1 [sym_kSpecialize]; AGroup 15035 1 [sym_kIf]; AGroup 15037 1 [sym_kInherited];
     AGroup 15039 1 [sym_kString]; AGroup 17218 1 [anon_sym_RBRACK];
     SGroup 3828 1 [aux_sym_caseLabel_repeat1]; SGroup 13744 1 [sym_range]; AGroup 3 2 syms_5;
     AGroup 15015 2 syms_6; AGroup 15019 2 syms_7; AGroup 15021 2 syms_8; AGroup 15023 2 syms_9;
     AGroup 15025 2 syms_10; AGroup 15033 2 syms_11; SGroup 8466 2 syms_12;
     SGroup 7201 3 syms_13; SGroup 9563 4 syms_14; AGroup 15027 5 syms_15; SGroup 7990 14 syms_17]);
   (78036, 23, [AGroup 5 1 [sym_ppDirective]; AGroup 15647 1 [anon_sym_LBRACK];
     AGroup 15653 1 [anon_sym_POUND]; AGroup 15667 1 [sym_kSpecialize]; AGroup 15671 1 [sym_kIf];
     AGroup 15673 1 [sym_kInherited]; AGroup 15745 1 [anon_sym_LPAREN];
     AGroup 17076 1 [sym_kString]; AGroup 17220 1 [anon_sym_RPAREN];
     SGroup 4095 1 [aux_sym_exprArgs_repeat1]; SGroup 15297 1 [sym_exprArgs]; AGroup 3 2 syms_5;
     AGroup 15651 2 syms_6; AGroup 15655 2 syms_7; AGroup 15657 2 syms_8; AGroup 15659 2 syms_9;
     AGroup 15661 2 syms_10; AGroup 15669 2 syms_11; SGroup 8129 2 syms_12;
     SGroup 7100 3 syms_13; SGroup 8456 4 syms_14; AGroup 15663 5 syms_15; SGroup 7786 14 syms_17]);
   (78136, 23, [AGroup 5 1 [sym_ppDirective]; AGroup 15011 1 [anon_sym_LBRACK];
     AGroup 15013 1 [anon_sym_LPAREN]; AGroup 15017 1 [anon_sym_POUND];
     AGroup 15029 1 [sym_kSpecialize]; AGroup 15035 1 [sym_kIf]; AGroup 15037 1 [sym_kInherited];
     AGroup 15039 1 [sym_kString]; AGroup 17222 1 [anon_sym_RBRACK];
     SGroup 3838 1 [aux_sym_caseLabel_repeat1]; SGroup 13462 1 [sym_range]; AGroup 3 2 syms_5;
     AGroup 15015 2 syms_6; AGroup 15019 2 syms_7; AGroup 15021 2 syms_8; AGroup 15023 2 syms_9;
     AGroup 15025 2 syms_10; AGroup 15033 2 syms_11; SGroup 8466 2 syms_12;
     SGroup 7201 3 syms_13; SGroup 9591 4 syms_14; AGroup 15027 5 syms_15; SGroup 7990 14 syms_17]);
   (78236, 5, [AGroup 5 1 [sym_ppDirective]; AGroup 3 2 syms_5; AGroup 15496 4 syms_25;
     AGroup 15403 18 syms_36; AGroup 15494 28 syms_103]);
   (78300, 5, [AGroup 5 1 [sym_ppDirective]; AGroup 3 2 syms_5; AGroup 15496 7 syms_34;
     AGroup 15403 18 syms_36; AGroup 15494 25 syms_104]);
   (78364, 5, [AGroup 5 1 [sym_ppDirective]; AGroup 3 2 syms_5; AGroup 15401 4 syms_25;
     AGroup 15403 18 syms_36; AGroup 15399 28 syms_103]);
   (78428, 23, [AGroup 5 1 [sym_ppDirective]; AGroup 15647 1 [anon_sym_LBRACK];
     AGroup 15653 1 [anon_sym_POUND]; AGroup 15667 1 [sym_kSpecialize]; AGroup 15671 1 [sym_kIf];
     AGroup 15673 1 [sym_kInherited]; AGroup 15745 1 [anon_sym_LPAREN];
     AGroup 17076 1 [sym_kString]; AGroup 17224 1 [anon_sym_RPAREN];
     SGroup 4095 1 [aux_sym_exprArgs_repeat1]; SGroup 15267 1 [sym_exprArgs]; AGroup 3 2 syms_5;
     AGroup 15651 2 syms_6; AGroup 15655 2 syms_7; AGroup 15657 2 syms_8; AGroup 15659 2 syms_9;
     AGroup 15661 2 syms_10; AGroup 15669 2 syms_11; SGroup 8129 2 syms_12;
     SGroup 7100 3 syms_13; SGroup 8456 4 syms_14; AGroup 15663 5 syms_15; SGroup 7786 14 syms_17]);
   (78528, 23, [AGroup 5 1 [sym_ppDirective]; AGroup 15011 1 [anon_sym_LBRACK];
     AGroup 15013 1 [anon_sym_LPAREN]; AGroup 15017 1 [anon_sym_POUND];
     AGroup 15029 1 [sym_kSpecialize]; AGroup 15035 1 [sym_kIf]; AGroup 15037 1 [sym_kInherited];
     AGroup 15039 1 [sym_kString]; AGroup 17226 1 [anon_sym_RBRACK];
     SGroup 3964 1 [aux_sym_declArray_repeat1]; SGroup 13639 1 [sym_range]; AGroup 3 2 syms_5;
     AGroup 15015 2 syms_6; AGroup 15019 2 syms_7; AGroup 15021 2 syms_8; AGroup 15023 2 syms_9;
     AGroup 15025 2 syms_10; AGroup 15033 2 syms_11; SGroup 8466 2 syms_12;
     SGroup 7201 3 syms_13; SGroup 9411 4 syms_14; AGroup 15027 5 syms_15; SGroup 7990 14 syms_17]);
   (78628, 22, [AGroup 5 1 [sym_ppDirective]; AGroup 15895 1 [anon_sym_LBRACK];
     AGroup 15897 1 [anon_sym_LPAREN]; AGroup 15901 1 [anon_sym_POUND];
     AGroup 15915 1 [sym_kSpecialize]; AGroup 15919 1 [sym_kIf]; AGroup 15921 1 [sym_kInherited];
     AGroup 17228 1 [anon_sym_SEMI]; AGroup 17230 1 [sym_kString]; AGroup 3 2 syms_5;
     AGroup 15576 2 syms_112; AGroup 15899 2 syms_6; AGroup 15903 2 syms_7;
     AGroup 15905 2 syms_8; AGroup 15907 2 syms_9; AGroup 15909 2 syms_10;
     AGroup 15917 2 syms_11; SGroup 8314 2 syms_12; SGroup 7161 3 syms_13; SGroup 9070 4 syms_14;
     AGroup 15911 5 syms_15; SGroup 8003 14 syms_17]);
   (78726, 23, [AGroup 5 1 [sym_ppDirective]; AGroup 15011 1 [anon_sym_LBRACK];
     AGroup 15013 1 [anon_sym_LPAREN]; AGroup 15017 1 [anon_sym_POUND];
     AGroup 15029 1 [sym_kSpecialize]; AGroup 15035 1 [sym_kIf]; AGroup 15037 1 [sym_kInherited];
     AGroup 15039 1 [sym_kString]; AGroup 17232 1 [anon_sym_RBRACK];
     SGroup 3881 1 [aux_sym_caseLabel_repeat1]; SGroup 13149 1 [sym_range]; AGroup 3 2 syms_5;
     AGroup 15015 2 syms_6; AGroup 15019 2 syms_7; AGroup 15021 2 syms_8; AGroup 15023 2 syms_9;
     AGroup 15025 2 syms_10; AGroup 15033 2 syms_11; SGroup 8466 2 syms_12;
     SGroup 7201 3 syms_13; SGroup 9449 4 syms_14; AGroup 15027 5 syms_15; SGroup 7990 14 syms_17]);
   (78826, 23, [AGroup 5 1 [sym_ppDirective]; AGroup 15647 1 [anon_sym_LBRACK];
     AGroup 15653 1 [anon_sym_POUND]; AGroup 15667 1 [sym_kSpecialize]; AGroup 15671 1 [sym_kIf];
     AGroup 15673 1 [sym_kInherited]; AGroup 15745 1 [anon_sym_LPAREN];
     AGroup 17076 1 [sym_kString]; AGroup 17234 1 [anon_sym_RPAREN];
     SGroup 4095 1 [aux_sym_exprArgs_repeat1]; SGroup 15092 1 [sym_exprArgs]; AGroup 3 2 syms_5;
     AGroup 15651 2 syms_6; AGroup 15655 2 syms_7; AGroup 15657 2 syms_8; AGroup 15659 2 syms_9;
     AGroup 15661 2 syms_10; AGroup 15669 2 syms_11; SGroup 8129 2 syms_12;
     SGroup 7100 3 syms_13; SGroup 8456 4 syms_14; AGroup 15663 5 syms_15; SGroup 7786 14 syms_17]);
   (78926, 23, [AGroup 5 1 [sym_ppDirective]; AGroup 15647 1 [anon_sym_LBRACK];
     AGroup 15653 1 [anon_sym_POUND]; AGroup 15667 1 [sym_kSpecialize]; AGroup 15671 1 [sym_kIf];
     AGroup 15673 1 [sym_kInherited]; AGroup 15745 1 [anon_sym_LPAREN];
     AGroup 17076 1 [sym_kString]; AGroup 17236 1 [anon_sym_RPAREN];
     SGroup 4095 1 [aux_sym_exprArgs_repeat1]; SGroup 14314 1 [sym_exprArgs]; AGroup 3 2 syms_5;
     AGroup 15651 2 syms_6; AGroup 15655 2 syms_7; AGroup 15657 2 syms_8; AGroup 15659 2 syms_9;
     AGroup 15661 2 syms_10; AGroup 15669 2 syms_11; SGroup 8129 2 syms_12;
     SGroup 7100 3 syms_13; SGroup 8456 4 syms_14; AGroup 15663 5 syms_15; SGroup 7786 14 syms_17]);
   (79026, 23, [AGroup 5 1 [sym_ppDirective]; AGroup 15647 1 [anon_sym_LBRACK];
     AGroup 15653 1 [anon_sym_POUND]; AGroup 15667 1 [sym_kSpecialize]; AGroup 15671 1 [sym_kIf];
     AGroup 15673 1 [sym_kInherited]; AGroup 15745 1 [anon_sym_LPAREN];
     AGroup 17076 1 [sym_kString]; AGroup 17238 1 [anon_sym_RPAREN];
     SGroup 4095 1 [aux_sym_exprArgs_repeat1]; SGroup 15140 1 [sym_exprArgs]; AGroup 3 2 syms_5;
     AGroup 15651 2 syms_6; AGroup 15655 2 syms_7; AGroup 15657 2 syms_8; AGroup 15659 2 syms_9;
     AGroup 15661 2 syms_10; AGroup 15669 2 syms_11; SGroup 8129 2 syms_12;
     SGroup 7100 3 syms_13; SGroup 8456 4 syms_14; AGroup 15663 5 syms_15; SGroup 7786 14 syms_17]);
   (79126, 5, [AGroup 5 1 [sym_ppDirective]; AGroup 3 2 syms_5; AGroup 15473 7 syms_34;
     AGroup 15403 18 syms_36; AGroup 15471 25 syms_104]);
   (79190, 4, [AGroup 5 1 [sym_ppDirective]; AGroup 3 2 syms_5; AGroup 17242 4 syms_25;
     AGroup 17240 46 syms_26]);
   (79252, 23, [AGroup 5 1 [sym_ppDirective]; AGroup 15647 1 [anon_sym_LBRACK];
     AGroup 15653 1 [anon_sym_POUND]; AGroup 15667 1 [sym_kSpecialize]; AGroup 15671 1 [sym_kIf];
     AGroup 15673 1 [sym_kInherited]; AGroup 15745 1 [anon_sym_LPAREN];
     AGroup 17076 1 [sym_kString]; AGroup 17244 1 [anon_sym_RPAREN];
     SGroup 4095 1 [aux_sym_exprArgs_repeat1]; SGroup 14364 1 [sym_exprArgs]; AGroup 3 2 syms_5;
     AGroup 15651 2 syms_6; AGroup 15655 2 syms_7; AGroup 15657 2 syms_8; AGroup 15659 2 syms_9;
     AGroup 15661 2 syms_10; AGroup 15669 2 syms_11; SGroup 8129 2 syms_12;
     SGroup 7100 3 syms_13; SGroup 8456 4 syms_14; AGroup 15663 5 syms_15; SGroup 7786 14 syms_17]);
   (79352, 21, [AGroup 5 1 [sym_ppDirective]; AGroup 15925 1 [anon_sym_LBRACK];
     AGroup 15931 1 [anon_sym_POUND]; AGroup 15945 1 [sym_kSpecialize]; AGroup 15949 1 [sym_kIf];
     AGroup 15951 1 [sym_kInherited]; AGroup 17246 1 [anon_sym_LPAREN];
     AGroup 17248 1 [sym_kString]; AGroup 3 2 syms_5; AGroup 15929 2 syms_6;
     AGroup 15933 2 syms_7; AGroup 15935 2 syms_8; AGroup 15937 2 syms_9; AGroup 15939 2 syms_10;
     AGroup 15947 2 syms_11; SGroup 9150 2 syms_12; SGroup 7490 3 syms_13;
     SGroup 14004 3 syms_56; SGroup 9784 4 syms_14; AGroup 15941 5 syms_15;
     SGroup 8764 14 syms_17]);
   (79448, 23, [AGroup 5 1 [sym_ppDirective]; AGroup 15011 1 [anon_sym_LBRACK];
     AGroup 15013 1 [anon_sym_LPAREN]; AGroup 15017 1 [anon_sym_POUND];
     AGroup 15029 1 [sym_kSpecialize]; AGroup 15035 1 [sym_kIf]; AGroup 15037 1 [sym_kInherited];
     AGroup 15039 1 [sym_kString]; AGroup 17250 1 [anon_sym_RBRACK];
     SGroup 3965 1 [aux_sym_declArray_repeat1]; SGroup 13668 1 [sym_range]; AGroup 3 2 syms_5;
     AGroup 15015 2 syms_6; AGroup 15019 2 syms_7; AGroup 15021 2 syms_8; AGroup 15023 2 syms_9;
     AGroup 15025 2 syms_10; AGroup 15033 2 syms_11; SGroup 8466 2 syms_12;
     SGroup 7201 3 syms_13; SGroup 9416 4 syms_14; AGroup 15027 5 syms_15; SGroup 7990 14 syms_17]);
   (79548, 5, [AGroup 5 1 [sym_ppDirective]; AGroup 3 2 syms_5; AGroup 15473 7 syms_34;
     AGroup 15403 18 syms_36; AGroup 15471 25 syms_113])
  ].

(** States 3559 to 3658. *)
Definition small_runs_3559 : list small_run :=
  [
   (79612, 23, [AGroup 5 1 [sym_ppDirective]; AGroup 15647 1 [anon_sym_LBRACK];
     AGroup 15653 1 [anon_sym_POUND]; AGroup 15667 1 [sym_kSpecialize]; AGroup 15671 1 [sym_kIf];
     AGroup 15673 1 [sym_kInherited]; AGroup 15745 1 [anon_sym_LPAREN];
     AGroup 17076 1 [sym_kString]; AGroup 17252 1 [anon_sym_RPAREN];
     SGroup 4095 1 [aux_sym_exprArgs_repeat1]; SGroup 14407 1 [sym_exprArgs]; AGroup 3 2 syms_5;
     AGroup 15651 2 syms_6; AGroup 15655 2 syms_7; AGroup 15657 2 syms_8; AGroup 15659 2 syms_9;
     AGroup 15661 2 syms_10; AGroup 15669 2 syms_11; SGroup 8129 2 syms_12;
     SGroup 7100 3 syms_13; SGroup 8456 4 syms_14; AGroup 15663 5 syms_15; SGroup 7786 14 syms_17]);
   (79712, 4, [AGroup 5 1 [sym_ppDirective]; AGroup 3 2 syms_5; AGroup 17256 4 syms_25;
     AGroup 17254 46 syms_26]);
   (79774, 5, [AGroup 5 1 [sym_ppDirective]; AGroup 3 2 syms_5; AGroup 15484 7 syms_34;
     AGroup 15403 18 syms_36; AGroup 15482 25 syms_106]);
   (79838, 21, [AGroup 5 1 [sym_ppDirective]; AGroup 15647 1 [anon_sym_LBRACK];
     AGroup 15649 1 [anon_sym_LPAREN]; AGroup 15653 1 [anon_sym_POUND];
     AGroup 15667 1 [sym_kSpecialize]; AGroup 15673 1 [sym_kInherited];
     AGroup 15675 1 [sym_kString]; AGroup 15755 1 [sym_kIf]; AGroup 3 2 syms_5;
     AGroup 15651 2 syms_6; AGroup 15655 2 syms_7; AGroup 15657 2 syms_8; AGroup 15669 2 syms_11;
     AGroup 15747 2 syms_9; AGroup 15749 2 syms_10; SGroup 8129 2 syms_12; SGroup 7100 3 syms_13;
     SGroup 11837 3 syms_56; SGroup 9426 4 syms_14; AGroup 15751 5 syms_15;
     SGroup 8464 14 syms_17]);
   (79934, 4, [AGroup 5 1 [sym_ppDirective]; AGroup 3 2 syms_5; AGroup 15355 7 syms_34;
     AGroup 15353 43 syms_108]);
   (79996, 23, [AGroup 5 1 [sym_ppDirective]; AGroup 15011 1 [anon_sym_LBRACK];
     AGroup 15013 1 [anon_sym_LPAREN]; AGroup 15017 1 [anon_sym_POUND];
     AGroup 15029 1 [sym_kSpecialize]; AGroup 15035 1 [sym_kIf]; AGroup 15037 1 [sym_kInherited];
     AGroup 15039 1 [sym_kString]; AGroup 17258 1 [anon_sym_RBRACK];
     SGroup 3886 1 [aux_sym_caseLabel_repeat1]; SGroup 13544 1 [sym_range]; AGroup 3 2 syms_5;
     AGroup 15015 2 syms_6; AGroup 15019 2 syms_7; AGroup 15021 2 syms_8; AGroup 15023 2 syms_9;
     AGroup 15025 2 syms_10; AGroup 15033 2 syms_11; SGroup 8466 2 syms_12;
     SGroup 7201 3 syms_13; SGroup 9470 4 syms_14; AGroup 15027 5 syms_15; SGroup 7990 14 syms_17]);
   (80096, 23, [AGroup 5 1 [sym_ppDirective]; AGroup 15647 1 [anon_sym_LBRACK];
     AGroup 15653 1 [anon_sym_POUND]; AGroup 15667 1 [sym_kSpecialize]; AGroup 15671 1 [sym_kIf];
     AGroup 15673 1 [sym_kInherited]; AGroup 15745 1 [anon_sym_LPAREN];
     AGroup 17076 1 [sym_kString]; AGroup 17260 1 [anon_sym_RPAREN];
     SGroup 4095 1 [aux_sym_exprArgs_repeat1]; SGroup 15304 1 [sym_exprArgs]; AGroup 3 2 syms_5;
     AGroup 15651 2 syms_6; AGroup 15655 2 syms_7; AGroup 15657 2 syms_8; AGroup 15659 2 syms_9;
     AGroup 15661 2 syms_10; AGroup 15669 2 syms_11; SGroup 8129 2 syms_12;
     SGroup 7100 3 syms_13; SGroup 8456 4 syms_14; AGroup 15663 5 syms_15; SGroup 7786 14 syms_17]);
   (80196, 5, [AGroup 5 1 [sym_ppDirective]; AGroup 3 2 syms_5; AGroup 15473 4 syms_25;
     AGroup 15403 18 syms_36; AGroup 15471 28 syms_114]);
   (80260, 23, [AGroup 5 1 [sym_ppDirective]; AGroup 15011 1 [anon_sym_LBRACK];
     AGroup 15013 1 [anon_sym_LPAREN]; AGroup 15017 1 [anon_sym_POUND];
     AGroup 15029 1 [sym_kSpecialize]; AGroup 15035 1 [sym_kIf]; AGroup 15037 1 [sym_kInherited];
     AGroup 15039 1 [sym_kString]; AGroup 17262 1 [anon_sym_RBRACK];
     SGroup 3853 1 [aux_sym_caseLabel_repeat1]; SGroup 13711 1 [sym_range]; AGroup 3 2 syms_5;
     AGroup 15015 2 syms_6; AGroup 15019 2 syms_7; AGroup 15021 2 syms_8; AGroup 15023 2 syms_9;
     AGroup 15025 2 syms_10; AGroup 15033 2 syms_11; SGroup 8466 2 syms_12;
     SGroup 7201 3 syms_13; SGroup 9619 4 syms_14; AGroup 15027 5 syms_15; SGroup 7990 14 syms_17]);
   (80360, 23, [AGroup 5 1 [sym_ppDirective]; AGroup 15647 1 [anon_sym_LBRACK];
     AGroup 15653 1 [anon_sym_POUND]; AGroup 15667 1 [sym_kSpecialize]; AGroup 15671 1 [sym_kIf];
     AGroup 15673 1 [sym_kInherited]; AGroup 15745 1 [anon_sym_LPAREN];
     AGroup 17076 1 [sym_kString]; AGroup 17264 1 [anon_sym_RPAREN];
     SGroup 4095 1 [aux_sym_exprArgs_repeat1]; SGroup 15340 1 [sym_exprArgs]; AGroup 3 2 syms_5;
     AGroup 15651 2 syms_6; AGroup 15655 2 syms_7; AGroup 15657 2 syms_8; AGroup 15659 2 syms_9;
     AGroup 15661 2 syms_10; AGroup 15669 2 syms_11; SGroup 8129 2 syms_12;
     SGroup 7100 3 syms_13; SGroup 8456 4 syms_14; AGroup 15663 5 syms_15; SGroup 7786 14 syms_17]);
   (80460, 12, [AGroup 17132 1 [sym_kDispId]; AGroup 17134 1 [sym_kPublic]; AGroup 17136 1 [sym_kExternal];
     AGroup 17138 1 [sym_kMessage]; AGroup 17140 1 [sym_kDeprecated];
     AGroup 17142 1 [sym_kExport]; AGroup 17144 1 [sym_kAlias]; AGroup 17266 1 [anon_sym_RBRACK];
     SGroup 3970 1 [aux_sym__procAttribute_repeat1]; SGroup 13908 2 syms_107; AGroup 3 3 syms_1;
     AGroup 1016 39 syms_33]);
   (80538, 23, [AGroup 5 1 [sym_ppDirective]; AGroup 15647 1 [anon_sym_LBRACK];
     AGroup 15653 1 [anon_sym_POUND]; AGroup 15667 1 [sym_kSpecialize]; AGroup 15671 1 [sym_kIf];
     AGroup 15673 1 [sym_kInherited]; AGroup 15745 1 [anon_sym_LPAREN];
     AGroup 17076 1 [sym_kString]; AGroup 17268 1 [anon_sym_RPAREN];
     SGroup 4095 1 [aux_sym_exprArgs_repeat1]; SGroup 15572 1 [sym_exprArgs]; AGroup 3 2 syms_5;
     AGroup 15651 2 syms_6; AGroup 15655 2 syms_7; AGroup 15657 2 syms_8; AGroup 15659 2 syms_9;
     AGroup 15661 2 syms_10; AGroup 15669 2 syms_11; SGroup 8129 2 syms_12;
     SGroup 7100 3 syms_13; SGroup 8456 4 syms_14; AGroup 15663 5 syms_15; SGroup 7786 14 syms_17]);
   (80638, 5, [AGroup 5 1 [sym_ppDirective]; AGroup 3 2 syms_5; AGroup 15473 7 syms_34;
     AGroup 15403 18 syms_36; AGroup 15471 25 syms_106]);
   (80702, 21, [AGroup 5 1 [sym_ppDirective]; AGroup 16673 1 [anon_sym_LBRACK];
     AGroup 16679 1 [anon_sym_POUND]; AGroup 16693 1 [sym_kSpecialize]; AGroup 16697 1 [sym_kIf];
     AGroup 16699 1 [sym_kInherited]; AGroup 17270 1 [anon_sym_LPAREN];
     AGroup 17272 1 [sym_kString]; AGroup 3 2 syms_5; AGroup 16677 2 syms_6;
     AGroup 16681 2 syms_7; AGroup 16683 2 syms_8; AGroup 16685 2 syms_9; AGroup 16687 2 syms_10;
     AGroup 16695 2 syms_11; SGroup 7694 2 syms_12; SGroup 6650 3 syms_13;
     SGroup 11388 3 syms_56; SGroup 8037 4 syms_14; AGroup 16689 5 syms_15;
     SGroup 7401 14 syms_17]);
   (80798, 23, [AGroup 5 1 [sym_ppDirective]; AGroup 15647 1 [anon_sym_LBRACK];
     AGroup 15653 1 [anon_sym_POUND]; AGroup 15667 1 [sym_kSpecialize]; AGroup 15671 1 [sym_kIf];
     AGroup 15673 1 [sym_kInherited]; AGroup 15745 1 [anon_sym_LPAREN];
     AGroup 17076 1 [sym_kString]; AGroup 17274 1 [anon_sym_RPAREN];
     SGroup 4095 1 [aux_sym_exprArgs_repeat1]; SGroup 15611 1 [sym_exprArgs]; AGroup 3 2 syms_5;
     AGroup 15651 2 syms_6; AGroup 15655 2 syms_7; AGroup 15657 2 syms_8; AGroup 15659 2 syms_9;
     AGroup 15661 2 syms_10; AGroup 15669 2 syms_11; SGroup 8129 2 syms_12;
     SGroup 7100 3 syms_13; SGroup 8456 4 syms_14; AGroup 15663 5 syms_15; SGroup 7786 14 syms_17]);
   (80898, 5, [AGroup 5 1 [sym_ppDirective]; AGroup 3 2 syms_5; AGroup 15504 4 syms_25;
     AGroup 15403 18 syms_36; AGroup 15502 28 syms_114]);
   (80962, 5, [AGroup 5 1 [sym_ppDirective]; AGroup 3 2 syms_5; AGroup 15484 4 syms_25;
     AGroup 15403 18 syms_36; AGroup 15482 28 syms_114]);
   (81026, 5, [AGroup 5 1 [sym_ppDirective]; AGroup 3 2 syms_5; AGroup 15492 4 syms_25;
     AGroup 15403 18 syms_36; AGroup 15490 28 syms_114]);
   (81090, 5, [AGroup 5 1 [sym_ppDirective]; AGroup 3 2 syms_5; AGroup 15401 4 syms_25;
     AGroup 15403 18 syms_36; AGroup 15399 28 syms_114]);
   (81154, 5, [AGroup 5 1 [sym_ppDirective]; AGroup 3 2 syms_5; AGroup 15473 7 syms_34;
     AGroup 15403 18 syms_36; AGroup 15471 25 syms_115]);
   (81218, 23, [AGroup 5 1 [sym_ppDirective]; AGroup 15011 1 [anon_sym_LBRACK];
     AGroup 15013 1 [anon_sym_LPAREN]; AGroup 15017 1 [anon_sym_POUND];
     AGroup 15029 1 [sym_kSpecialize]; AGroup 15035 1 [sym_kIf]; AGroup 15037 1 [sym_kInherited];
     AGroup 15039 1 [sym_kString]; AGroup 17276 1 [anon_sym_RBRACK];
     SGroup 4031 1 [aux_sym_caseLabel_repeat1]; SGroup 13014 1 [sym_range]; AGroup 3 2 syms_5;
     AGroup 15015 2 syms_6; AGroup 15019 2 syms_7; AGroup 15021 2 syms_8; AGroup 15023 2 syms_9;
     AGroup 15025 2 syms_10; AGroup 15033 2 syms_11; SGroup 8466 2 syms_12;
     SGroup 7201 3 syms_13; SGroup 9581 4 syms_14; AGroup 15027 5 syms_15; SGroup 7990 14 syms_17]);
   (81318, 5, [AGroup 5 1 [sym_ppDirective]; AGroup 3 2 syms_5; AGroup 15439 7 syms_34;
     AGroup 15403 18 syms_36; AGroup 15437 25 syms_106]);
   (81382, 23, [AGroup 5 1 [sym_ppDirective]; AGroup 15011 1 [anon_sym_LBRACK];
     AGroup 15013 1 [anon_sym_LPAREN]; AGroup 15017 1 [anon_sym_POUND];
     AGroup 15029 1 [sym_kSpecialize]; AGroup 15035 1 [sym_kIf]; AGroup 15037 1 [sym_kInherited];
     AGroup 15039 1 [sym_kString]; AGroup 17278 1 [anon_sym_RBRACK];
     SGroup 3971 1 [aux_sym_declArray_repeat1]; SGroup 13984 1 [sym_range]; AGroup 3 2 syms_5;
     AGroup 15015 2 syms_6; AGroup 15019 2 syms_7; AGroup 15021 2 syms_8; AGroup 15023 2 syms_9;
     AGroup 15025 2 syms_10; AGroup 15033 2 syms_11; SGroup 8466 2 syms_12;
     SGroup 7201 3 syms_13; SGroup 9427 4 syms_14; AGroup 15027 5 syms_15; SGroup 7990 14 syms_17]);
   (81482, 5, [AGroup 5 1 [sym_ppDirective]; AGroup 3 2 syms_5; AGroup 15439 4 syms_25;
     AGroup 15403 18 syms_36; AGroup 15437 28 syms_114]);
   (81546, 23, [AGroup 5 1 [sym_ppDirective]; AGroup 15011 1 [anon_sym_LBRACK];
     AGroup 15013 1 [anon_sym_LPAREN]; AGroup 15017 1 [anon_sym_POUND];
     AGroup 15029 1 [sym_kSpecialize]; AGroup 15035 1 [sym_kIf]; AGroup 15037 1 [sym_kInherited];
     AGroup 15039 1 [sym_kString]; AGroup 17280 1 [anon_sym_RBRACK];
     SGroup 3890 1 [aux_sym_caseLabel_repeat1]; SGroup 14035 1 [sym_range]; AGroup 3 2 syms_5;
     AGroup 15015 2 syms_6; AGroup 15019 2 syms_7; AGroup 15021 2 syms_8; AGroup 15023 2 syms_9;
     AGroup 15025 2 syms_10; AGroup 15033 2 syms_11; SGroup 8466 2 syms_12;
     SGroup 7201 3 syms_13; SGroup 9482 4 syms_14; AGroup 15027 5 syms_15; SGroup 7990 14 syms_17]);
   (81646, 23, [AGroup 5 1 [sym_ppDirective]; AGroup 15647 1 [anon_sym_LBRACK];
     AGroup 15653 1 [anon_sym_POUND]; AGroup 15667 1 [sym_kSpecialize]; AGroup 15671 1 [sym_kIf];
     AGroup 15673 1 [sym_kInherited]; AGroup 15745 1 [anon_sym_LPAREN];
     AGroup 17076 1 [sym_kString]; AGroup 17282 1 [anon_sym_RPAREN];
     SGroup 4095 1 [aux_sym_exprArgs_repeat1]; SGroup 15496 1 [sym_exprArgs]; AGroup 3 2 syms_5;
     AGroup 15651 2 syms_6; AGroup 15655 2 syms_7; AGroup 15657 2 syms_8; AGroup 15659 2 syms_9;
     AGroup 15661 2 syms_10; AGroup 15669 2 syms_11; SGroup 8129 2 syms_12;
     SGroup 7100 3 syms_13; SGroup 8456 4 syms_14; AGroup 15663 5 syms_15; SGroup 7786 14 syms_17]);
   (81746, 5, [AGroup 5 1 [sym_ppDirective]; AGroup 3 2 syms_5; AGroup 15488 4 syms_25;
     AGroup 15403 18 syms_36; AGroup 15486 28 syms_114]);
   (81810, 5, [AGroup 5 1 [sym_ppDirective]; AGroup 3 2 syms_5; AGroup 15496 4 syms_25;
     AGroup 15403 18 syms_36; AGroup 15494 28 syms_114]);
   (81874, 23, [AGroup 5 1 [sym_ppDirective]; AGroup 15647 1 [anon_sym_LBRACK];
     AGroup 15653 1 [anon_sym_POUND]; AGroup 15667 1 [sym_kSpecialize]; AGroup 15671 1 [sym_kIf];
     AGroup 15673 1 [sym_kInherited]; AGroup 15745 1 [anon_sym_LPAREN];
     AGroup 17076 1 [sym_kString]; AGroup 17284 1 [anon_sym_RPAREN];
     SGroup 4095 1 [aux_sym_exprArgs_repeat1]; SGroup 15517 1 [sym_exprArgs]; AGroup 3 2 syms_5;
     AGroup 15651 2 syms_6; AGroup 15655 2 syms_7; AGroup 15657 2 syms_8; AGroup 15659 2 syms_9;
     AGroup 15661 2 syms_10; AGroup 15669 2 syms_11; SGroup 8129 2 syms_12;
     SGroup 7100 3 syms_13; SGroup 8456 4 syms_14; AGroup 15663 5 syms_15; SGroup 7786 14 syms_17]);
   (81974, 5, [AGroup 5 1 [sym_ppDirective]; AGroup 3 2 syms_5; AGroup 15504 7 syms_34;
     AGroup 15403 18 syms_36; AGroup 15502 25 syms_115]);
   (82038, 5, [AGroup 5 1 [sym_ppDirective]; AGroup 3 2 syms_5; AGroup 15484 7 syms_34;
     AGroup 15403 18 syms_36; AGroup 15482 25 syms_115]);
   (82102, 23, [AGroup 5 1 [sym_ppDirective]; AGroup 15011 1 [anon_sym_LBRACK];
     AGroup 15013 1 [anon_sym_LPAREN]; AGroup 15017 1 [anon_sym_POUND];
     AGroup 15029 1 [sym_kSpecialize]; AGroup 15035 1 [sym_kIf]; AGroup 15037 1 [sym_kInherited];
     AGroup 15039 1 [sym_kString]; AGroup 17286 1 [anon_sym_RBRACK];
     SGroup 3972 1 [aux_sym_declArray_repeat1]; SGroup 14015 1 [sym_range]; AGroup 3 2 syms_5;
     AGroup 15015 2 syms_6; AGroup 15019 2 syms_7; AGroup 15021 2 syms_8; AGroup 15023 2 syms_9;
     AGroup 15025 2 syms_10; AGroup 15033 2 syms_11; SGroup 8466 2 syms_12;
     SGroup 7201 3 syms_13; SGroup 9429 4 syms_14; AGroup 15027 5 syms_15; SGroup 7990 14 syms_17]);
   (82202, 23, [AGroup 5 1 [sym_ppDirective]; AGroup 15011 1 [anon_sym_LBRACK];
     AGroup 15013 1 [anon_sym_LPAREN]; AGroup 15017 1 [anon_sym_POUND];
     AGroup 15029 1 [sym_kSpecialize]; AGroup 15035 1 [sym_kIf]; AGroup 15037 1 [sym_kInherited];
     AGroup 15039 1 [sym_kString]; AGroup 17288 1 [anon_sym_RBRACK];
     SGroup 3833 1 [aux_sym_caseLabel_repeat1]; SGroup 13132 1 [sym_range]; AGroup 3 2 syms_5;
     AGroup 15015 2 syms_6; AGroup 15019 2 syms_7; AGroup 15021 2 syms_8; AGroup 15023 2 syms_9;
     AGroup 15025 2 syms_10; AGroup 15033 2 syms_11; SGroup 8466 2 syms_12;
     SGroup 7201 3 syms_13; SGroup 9583 4 syms_14; AGroup 15027 5 syms_15; SGroup 7990 14 syms_17]);
   (82302, 5, [AGroup 5 1 [sym_ppDirective]; AGroup 3 2 syms_5; AGroup 15492 7 syms_34;
     AGroup 15403 18 syms_36; AGroup 15490 25 syms_115]);
   (82366, 5, [AGroup 5 1 [sym_ppDirective]; AGroup 3 2 syms_5; AGroup 15401 7 syms_34;
     AGroup 15403 18 syms_36; AGroup 15399 25 syms_115]);
   (82430, 5, [AGroup 5 1 [sym_ppDirective]; AGroup 3 2 syms_5; AGroup 15439 7 syms_34;
     AGroup 15403 18 syms_36; AGroup 15437 25 syms_115]);
   (82494, 5, [AGroup 5 1 [sym_ppDirective]; AGroup 3 2 syms_5; AGroup 15488 7 syms_34;
     AGroup 15403 18 syms_36; AGroup 15486 25 syms_115]);
   (82558, 23, [AGroup 5 1 [sym_ppDirective]; AGroup 15011 1 [anon_sym_LBRACK];
     AGroup 15013 1 [anon_sym_LPAREN]; AGroup 15017 1 [anon_sym_POUND];
     AGroup 15029 1 [sym_kSpecialize]; AGroup 15035 1 [sym_kIf]; AGroup 15037 1 [sym_kInherited];
     AGroup 15039 1 [sym_kString]; AGroup 17290 1 [anon_sym_RBRACK];
     SGroup 3983 1 [aux_sym_caseLabel_repeat1]; SGroup 13983 1 [sym_range]; AGroup 3 2 syms_5;
     AGroup 15015 2 syms_6; AGroup 15019 2 syms_7; AGroup 15021 2 syms_8; AGroup 15023 2 syms_9;
     AGroup 15025 2 syms_10; AGroup 15033 2 syms_11; SGroup 8466 2 syms_12;
     SGroup 7201 3 syms_13; SGroup 9462 4 syms_14; AGroup 15027 5 syms_15; SGroup 7990 14 syms_17]);
   (82658, 5, [AGroup 5 1 [sym_ppDirective]; AGroup 3 2 syms_5; AGroup 15504 7 syms_34;
     AGroup 15403 18 syms_36; AGroup 15502 25 syms_113]);
   (82722, 23, [AGroup 5 1 [sym_ppDirective]; AGroup 15011 1 [anon_sym_LBRACK];
     AGroup 15013 1 [anon_sym_LPAREN]; AGroup 15017 1 [anon_sym_POUND];
     AGroup 15029 1 [sym_kSpecialize]; AGroup 15035 1 [sym_kIf]; AGroup 15037 1 [sym_kInherited];
     AGroup 15039 1 [sym_kString]; AGroup 17292 1 [anon_sym_RBRACK];
     SGroup 4013 1 [aux_sym_caseLabel_repeat1]; SGroup 13781 1 [sym_range]; AGroup 3 2 syms_5;
     AGroup 15015 2 syms_6; AGroup 15019 2 syms_7; AGroup 15021 2 syms_8; AGroup 15023 2 syms_9;
     AGroup 15025 2 syms_10; AGroup 15033 2 syms_11; SGroup 8466 2 syms_12;
     SGroup 7201 3 syms_13; SGroup 9493 4 syms_14; AGroup 15027 5 syms_15; SGroup 7990 14 syms_17]);
   (82822, 5, [AGroup 5 1 [sym_ppDirective]; AGroup 3 2 syms_5; AGroup 15496 7 syms_34;
     AGroup 15403 18 syms_36; AGroup 15494 25 syms_115]);
   (82886, 23, [AGroup 5 1 [sym_ppDirective]; AGroup 15647 1 [anon_sym_LBRACK];
     AGroup 15653 1 [anon_sym_POUND]; AGroup 15667 1 [sym_kSpecialize]; AGroup 15671 1 [sym_kIf];
     AGroup 15673 1 [sym_kInherited]; AGroup 15745 1 [anon_sym_LPAREN];
     AGroup 17076 1 [sym_kString]; AGroup 17294 1 [anon_sym_RPAREN];
     SGroup 4095 1 [aux_sym_exprArgs_repeat1]; SGroup 14692 1 [sym_exprArgs]; AGroup 3 2 syms_5;
     AGroup 15651 2 syms_6; AGroup 15655 2 syms_7; AGroup 15657 2 syms_8; AGroup 15659 2 syms_9;
     AGroup 15661 2 syms_10; AGroup 15669 2 syms_11; SGroup 8129 2 syms_12;
     SGroup 7100 3 syms_13; SGroup 8456 4 syms_14; AGroup 15663 5 syms_15; SGroup 7786 14 syms_17]);
   (82986, 12, [AGroup 17132 1 [sym_kDispId]; AGroup 17134 1 [sym_kPublic]; AGroup 17136 1 [sym_kExternal];
     AGroup 17138 1 [sym_kMessage]; AGroup 17140 1 [sym_kDeprecated];
     AGroup 17142 1 [sym_kExport]; AGroup 17144 1 [sym_kAlias]; AGroup 17296 1 [anon_sym_RBRACK];
     SGroup 3977 1 [aux_sym__procAttribute_repeat1]; SGroup 13021 2 syms_107; AGroup 3 3 syms_1;
     AGroup 1016 39 syms_33]);
   (83064, 4, [AGroup 5 1 [sym_ppDirective]; AGroup 3 2 syms_5; AGroup 15295 4 syms_25;
     AGroup 15293 46 syms_116]);
   (83126, 21, [AGroup 5 1 [sym_ppDirective]; AGroup 15647 1 [anon_sym_LBRACK];
     AGroup 15649 1 [anon_sym_LPAREN]; AGroup 15653 1 [anon_sym_POUND];
     AGroup 15667 1 [sym_kSpecialize]; AGroup 15673 1 [sym_kInherited];
     AGroup 15675 1 [sym_kString]; AGroup 15755 1 [sym_kIf]; AGroup 3 2 syms_5;
     AGroup 15651 2 syms_6; AGroup 15655 2 syms_7; AGroup 15657 2 syms_8; AGroup 15669 2 syms_11;
     AGroup 15747 2 syms_9; AGroup 15749 2 syms_10; SGroup 8129 2 syms_12; SGroup 7100 3 syms_13;
     SGroup 11837 3 syms_56; SGroup 10107 4 syms_14; AGroup 15751 5 syms_15;
     SGroup 8464 14 syms_17]);
   (83222, 23, [AGroup 5 1 [sym_ppDirective]; AGroup 15011 1 [anon_sym_LBRACK];
     AGroup 15013 1 [anon_sym_LPAREN]; AGroup 15017 1 [anon_sym_POUND];
     AGroup 15029 1 [sym_kSpecialize]; AGroup 15035 1 [sym_kIf]; AGroup 15037 1 [sym_kInherited];
     AGroup 15039 1 [sym_kString]; AGroup 17298 1 [anon_sym_RBRACK];
     SGroup 3894 1 [aux_sym_caseLabel_repeat1]; SGroup 13065 1 [sym_range]; AGroup 3 2 syms_5;
     AGroup 15015 2 syms_6; AGroup 15019 2 syms_7; AGroup 15021 2 syms_8; AGroup 15023 2 syms_9;
     AGroup 15025 2 syms_10; AGroup 15033 2 syms_11; SGroup 8466 2 syms_12;
     SGroup 7201 3 syms_13; SGroup 9508 4 syms_14; AGroup 15027 5 syms_15; SGroup 7990 14 syms_17]);
   (83322, 23, [AGroup 5 1 [sym_ppDirective]; AGroup 15647 1 [anon_sym_LBRACK];
     AGroup 15653 1 [anon_sym_POUND]; AGroup 15667 1 [sym_kSpecialize]; AGroup 15671 1 [sym_kIf];
     AGroup 15673 1 [sym_kInherited]; AGroup 15745 1 [anon_sym_LPAREN];
     AGroup 17076 1 [sym_kString]; AGroup 17300 1 [anon_sym_RPAREN];
     SGroup 4095 1 [aux_sym_exprArgs_repeat1]; SGroup 15620 1 [sym_exprArgs]; AGroup 3 2 syms_5;
     AGroup 15651 2 syms_6; AGroup 15655 2 syms_7; AGroup 15657 2 syms_8; AGroup 15659 2 syms_9;
     AGroup 15661 2 syms_10; AGroup 15669 2 syms_11; SGroup 8129 2 syms_12;
     SGroup 7100 3 syms_13; SGroup 8456 4 syms_14; AGroup 15663 5 syms_15; SGroup 7786 14 syms_17]);
   (83422, 21, [AGroup 5 1 [sym_ppDirective]; AGroup 15865 1 [anon_sym_LBRACK];
     AGroup 15871 1 [anon_sym_POUND]; AGroup 15885 1 [sym_kSpecialize]; AGroup 15889 1 [sym_kIf];
     AGroup 15891 1 [sym_kInherited]; AGroup 17302 1 [anon_sym_LPAREN];
     AGroup 17304 1 [sym_kString]; AGroup 3 2 syms_5; AGroup 15869 2 syms_6;
     AGroup 15873 2 syms_7; AGroup 15875 2 syms_8; AGroup 15877 2 syms_9; AGroup 15879 2 syms_10;
     AGroup 15887 2 syms_11; SGroup 8622 2 syms_12; SGroup 7298 3 syms_13;
     SGroup 12952 3 syms_56; SGroup 9546 4 syms_14; AGroup 15881 5 syms_15;
     SGroup 8584 14 syms_17]);
   (83518, 23, [AGroup 5 1 [sym_ppDirective]; AGroup 15647 1 [anon_sym_LBRACK];
     AGroup 15653 1 [anon_sym_POUND]; AGroup 15667 1 [sym_kSpecialize]; AGroup 15671 1 [sym_kIf];
     AGroup 15673 1 [sym_kInherited]; AGroup 15745 1 [anon_sym_LPAREN];
     AGroup 17076 1 [sym_kString]; AGroup 17306 1 [anon_sym_RPAREN];
     SGroup 4095 1 [aux_sym_exprArgs_repeat1]; SGroup 14322 1 [sym_exprArgs]; AGroup 3 2 syms_5;
     AGroup 15651 2 syms_6; AGroup 15655 2 syms_7; AGroup 15657 2 syms_8; AGroup 15659 2 syms_9;
     AGroup 15661 2 syms_10; AGroup 15669 2 syms_11; SGroup 8129 2 syms_12;
     SGroup 7100 3 syms_13; SGroup 8456 4 syms_14; AGroup 15663 5 syms_15; SGroup 7786 14 syms_17]);
   (83618, 23, [AGroup 5 1 [sym_ppDirective]; AGroup 15647 1 [anon_sym_LBRACK];
     AGroup 15653 1 [anon_sym_POUND]; AGroup 15667 1 [sym_kSpecialize]; AGroup 15671 1 [sym_kIf];
     AGroup 15673 1 [sym_kInherited]; AGroup 15745 1 [anon_sym_LPAREN];
     AGroup 17076 1 [sym_kString]; AGroup 17308 1 [anon_sym_RPAREN];
     SGroup 4095 1 [aux_sym_exprArgs_repeat1]; SGroup 15640 1 [sym_exprArgs]; AGroup 3 2 syms_5;
     AGroup 15651 2 syms_6; AGroup 15655 2 syms_7; AGroup 15657 2 syms_8; AGroup 15659 2 syms_9;
     AGroup 15661 2 syms_10; AGroup 15669 2 syms_11; SGroup 8129 2 syms_12;
     SGroup 7100 3 syms_13; SGroup 8456 4 syms_14; AGroup 15663 5 syms_15; SGroup 7786 14 syms_17]);
   (83718, 5, [AGroup 5 1 [sym_ppDirective]; AGroup 3 2 syms_5; AGroup 15484 7 syms_34;
     AGroup 15403 18 syms_36; AGroup 15482 25 syms_113]);
   (83782, 4, [AGroup 5 1 [sym_ppDirective]; AGroup 3 2 syms_5; AGroup 15355 4 syms_25;
     AGroup 15353 46 syms_116]);
   (83844, 21, [AGroup 5 1 [sym_ppDirective]; AGroup 15831 1 [anon_sym_LBRACK];
     AGroup 15837 1 [anon_sym_POUND]; AGroup 15851 1 [sym_kSpecialize]; AGroup 15855 1 [sym_kIf];
     AGroup 15857 1 [sym_kInherited]; AGroup 17310 1 [anon_sym_LPAREN];
     AGroup 17312 1 [sym_kString]; AGroup 3 2 syms_5; AGroup 15835 2 syms_6;
     AGroup 15839 2 syms_7; AGroup 15841 2 syms_8; AGroup 15843 2 syms_9; AGroup 15845 2 syms_10;
     AGroup 15853 2 syms_11; SGroup 9267 2 syms_12; SGroup 7556 3 syms_13;
     SGroup 13156 3 syms_56; SGroup 9713 4 syms_14; AGroup 15847 5 syms_15;
     SGroup 8649 14 syms_17]);
   (83940, 23, [AGroup 5 1 [sym_ppDirective]; AGroup 15647 1 [anon_sym_LBRACK];
     AGroup 15653 1 [anon_sym_POUND]; AGroup 15667 1 [sym_kSpecialize]; AGroup 15671 1 [sym_kIf];
     AGroup 15673 1 [sym_kInherited]; AGroup 15745 1 [anon_sym_LPAREN];
     AGroup 17076 1 [sym_kString]; AGroup 17314 1 [anon_sym_RPAREN];
     SGroup 4095 1 [aux_sym_exprArgs_repeat1]; SGroup 14345 1 [sym_exprArgs]; AGroup 3 2 syms_5;
     AGroup 15651 2 syms_6; AGroup 15655 2 syms_7; AGroup 15657 2 syms_8; AGroup 15659 2 syms_9;
     AGroup 15661 2 syms_10; AGroup 15669 2 syms_11; SGroup 8129 2 syms_12;
     SGroup 7100 3 syms_13; SGroup 8456 4 syms_14; AGroup 15663 5 syms_15; SGroup 7786 14 syms_17]);
   (84040, 23, [AGroup 5 1 [sym_ppDirective]; AGroup 15647 1 [anon_sym_LBRACK];
     AGroup 15653 1 [anon_sym_POUND]; AGroup 15667 1 [sym_kSpecialize]; AGroup 15671 1 [sym_kIf];
     AGroup 15673 1 [sym_kInherited]; AGroup 15745 1 [anon_sym_LPAREN];
     AGroup 17076 1 [sym_kString]; AGroup 17316 1 [anon_sym_RPAREN];
     SGroup 4095 1 [aux_sym_exprArgs_repeat1]; SGroup 15626 1 [sym_exprArgs]; AGroup 3 2 syms_5;
     AGroup 15651 2 syms_6; AGroup 15655 2 syms_7; AGroup 15657 2 syms_8; AGroup 15659 2 syms_9;
     AGroup 15661 2 syms_10; AGroup 15669 2 syms_11; SGroup 8129 2 syms_12;
     SGroup 7100 3 syms_13; SGroup 8456 4 syms_14; AGroup 15663 5 syms_15; SGroup 7786 14 syms_17]);
   (84140, 23, [AGroup 5 1 [sym_ppDirective]; AGroup 15647 1 [anon_sym_LBRACK];
     AGroup 15653 1 [anon_sym_POUND]; AGroup 15667 1 [sym_kSpecialize]; AGroup 15671 1 [sym_kIf];
     AGroup 15673 1 [sym_kInherited]; AGroup 15745 1 [anon_sym_LPAREN];
     AGroup 17076 1 [sym_kString]; AGroup 17318 1 [anon_sym_RPAREN];
     SGroup 4095 1 [aux_sym_exprArgs_repeat1]; SGroup 15772 1 [sym_exprArgs]; AGroup 3 2 syms_5;
     AGroup 15651 2 syms_6; AGroup 15655 2 syms_7; AGroup 15657 2 syms_8; AGroup 15659 2 syms_9;
     AGroup 15661 2 syms_10; AGroup 15669 2 syms_11; SGroup 8129 2 syms_12;
     SGroup 7100 3 syms_13; SGroup 8456 4 syms_14; AGroup 15663 5 syms_15; SGroup 7786 14 syms_17]);
   (84240, 23, [AGroup 5 1 [sym_ppDirective]; AGroup 15647 1 [anon_sym_LBRACK];
     AGroup 15653 1 [anon_sym_POUND]; AGroup 15667 1 [sym_kSpecialize]; AGroup 15671 1 [sym_kIf];
     AGroup 15673 1 [sym_kInherited]; AGroup 15745 1 [anon_sym_LPAREN];
     AGroup 17076 1 [sym_kString]; AGroup 17320 1 [anon_sym_RPAREN];
     SGroup 4095 1 [aux_sym_exprArgs_repeat1]; SGroup 15489 1 [sym_exprArgs]; AGroup 3 2 syms_5;
     AGroup 15651 2 syms_6; AGroup 15655 2 syms_7; AGroup 15657 2 syms_8; AGroup 15659 2 syms_9;
     AGroup 15661 2 syms_10; AGroup 15669 2 syms_11; SGroup 8129 2 syms_12;
     SGroup 7100 3 syms_13; SGroup 8456 4 syms_14; AGroup 15663 5 syms_15; SGroup 7786 14 syms_17]);
   (84340, 23, [AGroup 5 1 [sym_ppDirective]; AGroup 15647 1 [anon_sym_LBRACK];
     AGroup 15653 1 [anon_sym_POUND]; AGroup 15667 1 [sym_kSpecialize]; AGroup 15671 1 [sym_kIf];
     AGroup 15673 1 [sym_kInherited]; AGroup 15745 1 [anon_sym_LPAREN];
     AGroup 17076 1 [sym_kString]; AGroup 17322 1 [anon_sym_RPAREN];
     SGroup 4095 1 [aux_sym_exprArgs_repeat1]; SGroup 15851 1 [sym_exprArgs]; AGroup 3 2 syms_5;
     AGroup 15651 2 syms_6; AGroup 15655 2 syms_7; AGroup 15657 2 syms_8; AGroup 15659 2 syms_9;
     AGroup 15661 2 syms_10; AGroup 15669 2 syms_11; SGroup 8129 2 syms_12;
     SGroup 7100 3 syms_13; SGroup 8456 4 syms_14; AGroup 15663 5 syms_15; SGroup 7786 14 syms_17]);
   (84440, 23, [AGroup 5 1 [sym_ppDirective]; AGroup 15011 1 [anon_sym_LBRACK];
     AGroup 15013 1 [anon_sym_LPAREN]; AGroup 15017 1 [anon_sym_POUND];
     AGroup 15029 1 [sym_kSpecialize]; AGroup 15035 1 [sym_kIf]; AGroup 15037 1 [sym_kInherited];
     AGroup 15039 1 [sym_kString]; AGroup 17324 1 [anon_sym_RBRACK];
     SGroup 3858 1 [aux_sym_caseLabel_repeat1]; SGroup 13932 1 [sym_range]; AGroup 3 2 syms_5;
     AGroup 15015 2 syms_6; AGroup 15019 2 syms_7; AGroup 15021 2 syms_8; AGroup 15023 2 syms_9;
     AGroup 15025 2 syms_10; AGroup 15033 2 syms_11; SGroup 8466 2 syms_12;
     SGroup 7201 3 syms_13; SGroup 9484 4 syms_14; AGroup 15027 5 syms_15; SGroup 7990 14 syms_17]);
   (84540, 4, [AGroup 5 1 [sym_ppDirective]; AGroup 3 2 syms_5; AGroup 17328 4 syms_25;
     AGroup 17326 46 syms_26]);
   (84602, 23, [AGroup 5 1 [sym_ppDirective]; AGroup 15647 1 [anon_sym_LBRACK];
     AGroup 15653 1 [anon_sym_POUND]; AGroup 15667 1 [sym_kSpecialize]; AGroup 15671 1 [sym_kIf];
     AGroup 15673 1 [sym_kInherited]; AGroup 15745 1 [anon_sym_LPAREN];
     AGroup 17076 1 [sym_kString]; AGroup 17330 1 [anon_sym_RPAREN];
     SGroup 4095 1 [aux_sym_exprArgs_repeat1]; SGroup 15654 1 [sym_exprArgs]; AGroup 3 2 syms_5;
     AGroup 15651 2 syms_6; AGroup 15655 2 syms_7; AGroup 15657 2 syms_8; AGroup 15659 2 syms_9;
     AGroup 15661 2 syms_10; AGroup 15669 2 syms_11; SGroup 8129 2 syms_12;
     SGroup 7100 3 syms_13; SGroup 8456 4 syms_14; AGroup 15663 5 syms_15; SGroup 7786 14 syms_17]);
   (84702, 23, [AGroup 5 1 [sym_ppDirective]; AGroup 15011 1 [anon_sym_LBRACK];
     AGroup 15013 1 [anon_sym_LPAREN]; AGroup 15017 1 [anon_sym_POUND];
     AGroup 15029 1 [sym_kSpecialize]; AGroup 15035 1 [sym_kIf]; AGroup 15037 1 [sym_kInherited];
     AGroup 15039 1 [sym_kString]; AGroup 17332 1 [anon_sym_RBRACK];
     SGroup 3898 1 [aux_sym_caseLabel_repeat1]; SGroup 13194 1 [sym_range]; AGroup 3 2 syms_5;
     AGroup 15015 2 syms_6; AGroup 15019 2 syms_7; AGroup 15021 2 syms_8; AGroup 15023 2 syms_9;
     AGroup 15025 2 syms_10; AGroup 15033 2 syms_11; SGroup 8466 2 syms_12;
     SGroup 7201 3 syms_13; SGroup 9558 4 syms_14; AGroup 15027 5 syms_15; SGroup 7990 14 syms_17]);
   (84802, 23, [AGroup 5 1 [sym_ppDirective]; AGroup 15647 1 [anon_sym_LBRACK];
     AGroup 15653 1 [anon_sym_POUND]; AGroup 15667 1 [sym_kSpecialize]; AGroup 15671 1 [sym_kIf];
     AGroup 15673 1 [sym_kInherited]; AGroup 15745 1 [anon_sym_LPAREN];
     AGroup 17076 1 [sym_kString]; AGroup 17334 1 [anon_sym_RPAREN];
     SGroup 4095 1 [aux_sym_exprArgs_repeat1]; SGroup 15775 1 [sym_exprArgs]; AGroup 3 2 syms_5;
     AGroup 15651 2 syms_6; AGroup 15655 2 syms_7; AGroup 15657 2 syms_8; AGroup 15659 2 syms_9;
     AGroup 15661 2 syms_10; AGroup 15669 2 syms_11; SGroup 8129 2 syms_12;
     SGroup 7100 3 syms_13; SGroup 8456 4 syms_14; AGroup 15663 5 syms_15; SGroup 7786 14 syms_17]);
   (84902, 5, [AGroup 5 1 [sym_ppDirective]; AGroup 3 2 syms_5; AGroup 15439 7 syms_34;
     AGroup 15403 18 syms_36; AGroup 15437 25 syms_113]);
   (84966, 5, [AGroup 5 1 [sym_ppDirective]; AGroup 3 2 syms_5; AGroup 15496 7 syms_34;
     AGroup 15403 18 syms_36; AGroup 15494 25 syms_106]);
   (85030, 23, [AGroup 5 1 [sym_ppDirective]; AGroup 15647 1 [anon_sym_LBRACK];
     AGroup 15653 1 [anon_sym_POUND]; AGroup 15667 1 [sym_kSpecialize]; AGroup 15671 1 [sym_kIf];
     AGroup 15673 1 [sym_kInherited]; AGroup 15745 1 [anon_sym_LPAREN];
     AGroup 17076 1 [sym_kString]; AGroup 17336 1 [anon_sym_RPAREN];
     SGroup 4095 1 [aux_sym_exprArgs_repeat1]; SGroup 15915 1 [sym_exprArgs]; AGroup 3 2 syms_5;
     AGroup 15651 2 syms_6; AGroup 15655 2 syms_7; AGroup 15657 2 syms_8; AGroup 15659 2 syms_9;
     AGroup 15661 2 syms_10; AGroup 15669 2 syms_11; SGroup 8129 2 syms_12;
     SGroup 7100 3 syms_13; SGroup 8456 4 syms_14; AGroup 15663 5 syms_15; SGroup 7786 14 syms_17]);
   (85130, 23, [AGroup 5 1 [sym_ppDirective]; AGroup 15647 1 [anon_sym_LBRACK];
     AGroup 15653 1 [anon_sym_POUND]; AGroup 15667 1 [sym_kSpecialize]; AGroup 15671 1 [sym_kIf];
     AGroup 15673 1 [sym_kInherited]; AGroup 15745 1 [anon_sym_LPAREN];
     AGroup 17076 1 [sym_kString]; AGroup 17338 1 [anon_sym_RPAREN];
     SGroup 4095 1 [aux_sym_exprArgs_repeat1]; SGroup 15792 1 [sym_exprArgs]; AGroup 3 2 syms_5;
     AGroup 15651 2 syms_6; AGroup 15655 2 syms_7; AGroup 15657 2 syms_8; AGroup 15659 2 syms_9;
     AGroup 15661 2 syms_10; AGroup 15669 2 syms_11; SGroup 8129 2 syms_12;
     SGroup 7100 3 syms_13; SGroup 8456 4 syms_14; AGroup 15663 5 syms_15; SGroup 7786 14 syms_17]);
   (85230, 4, [AGroup 5 1 [sym_ppDirective]; AGroup 3 2 syms_5; AGroup 17342 4 syms_25;
     AGroup 17340 46 syms_26]);
   (85292, 21, [AGroup 5 1 [sym_ppDirective]; AGroup 16021 1 [anon_sym_LBRACK];
     AGroup 16023 1 [anon_sym_LPAREN]; AGroup 16027 1 [anon_sym_POUND];
     AGroup 16041 1 [sym_kSpecialize]; AGroup 16045 1 [sym_kIf]; AGroup 16047 1 [sym_kInherited];
     AGroup 17344 1 [sym_kString]; AGroup 3 2 syms_5; AGroup 16025 2 syms_6;
     AGroup 16029 2 syms_7; AGroup 16031 2 syms_8; AGroup 16033 2 syms_9; AGroup 16035 2 syms_10;
     AGroup 16043 2 syms_11; SGroup 9151 2 syms_12; AGroup 15179 3 syms_117;
     SGroup 7393 3 syms_13; SGroup 9703 4 syms_14; AGroup 16037 5 syms_15; SGroup 8705 14 syms_17]);
   (85388, 21, [AGroup 5 1 [sym_ppDirective]; AGroup 16021 1 [anon_sym_LBRACK];
     AGroup 16023 1 [anon_sym_LPAREN]; AGroup 16027 1 [anon_sym_POUND];
     AGroup 16041 1 [sym_kSpecialize]; AGroup 16045 1 [sym_kIf]; AGroup 16047 1 [sym_kInherited];
     AGroup 17344 1 [sym_kString]; AGroup 3 2 syms_5; AGroup 16025 2 syms_6;
     AGroup 16029 2 syms_7; AGroup 16031 2 syms_8; AGroup 16033 2 syms_9; AGroup 16035 2 syms_10;
     AGroup 16043 2 syms_11; SGroup 9151 2 syms_12; AGroup 14765 3 syms_117;
     SGroup 7393 3 syms_13; SGroup 9628 4 syms_14; AGroup 16037 5 syms_15; SGroup 8705 14 syms_17]);
   (85484, 5, [AGroup 5 1 [sym_ppDirective]; AGroup 17350 1 [sym_identifier]; AGroup 3 2 syms_5;
     AGroup 17348 4 syms_25; AGroup 17346 45 syms_118]);
   (85548, 4, [AGroup 5 1 [sym_ppDirective]; AGroup 3 2 syms_5; AGroup 15295 7 syms_34;
     AGroup 15293 43 syms_119]);
   (85610, 4, [AGroup 5 1 [sym_ppDirective]; AGroup 3 2 syms_5; AGroup 15295 7 syms_34;
     AGroup 15293 43 syms_120]);
   (85672, 12, [AGroup 17132 1 [sym_kDispId]; AGroup 17134 1 [sym_kPublic]; AGroup 17136 1 [sym_kExternal];
     AGroup 17138 1 [sym_kMessage]; AGroup 17140 1 [sym_kDeprecated];
     AGroup 17142 1 [sym_kExport]; AGroup 17144 1 [sym_kAlias]; AGroup 17352 1 [anon_sym_RBRACK];
     SGroup 3982 1 [aux_sym__procAttribute_repeat1]; SGroup 13099 2 syms_107; AGroup 3 3 syms_1;
     AGroup 1016 39 syms_33]);
   (85750, 23, [AGroup 5 1 [sym_ppDirective]; AGroup 15647 1 [anon_sym_LBRACK];
     AGroup 15653 1 [anon_sym_POUND]; AGroup 15667 1 [sym_kSpecialize]; AGroup 15671 1 [sym_kIf];
     AGroup 15673 1 [sym_kInherited]; AGroup 15745 1 [anon_sym_LPAREN];
     AGroup 17076 1 [sym_kString]; AGroup 17354 1 [anon_sym_RPAREN];
     SGroup 4095 1 [aux_sym_exprArgs_repeat1]; SGroup 15965 1 [sym_exprArgs]; AGroup 3 2 syms_5;
     AGroup 15651 2 syms_6; AGroup 15655 2 syms_7; AGroup 15657 2 syms_8; AGroup 15659 2 syms_9;
     AGroup 15661 2 syms_10; AGroup 15669 2 syms_11; SGroup 8129 2 syms_12;
     SGroup 7100 3 syms_13; SGroup 8456 4 syms_14; AGroup 15663 5 syms_15; SGroup 7786 14 syms_17]);
   (85850, 4, [AGroup 5 1 [sym_ppDirective]; AGroup 3 2 syms_5; AGroup 15295 7 syms_34;
     AGroup 15293 43 syms_121]);
   (85912, 4, [AGroup 5 1 [sym_ppDirective]; AGroup 3 2 syms_5; AGroup 17358 4 syms_25;
     AGroup 17356 46 syms_26]);
   (85974, 4, [AGroup 5 1 [sym_ppDirective]; AGroup 3 2 syms_5; AGroup 17362 4 syms_25;
     AGroup 17360 46 syms_26]);
   (86036, 5, [AGroup 5 1 [sym_ppDirective]; AGroup 3 2 syms_5; AGroup 15488 7 syms_34;
     AGroup 15403 18 syms_36; AGroup 15486 25 syms_113]);
   (86100, 4, [AGroup 5 1 [sym_ppDirective]; AGroup 3 2 syms_5; AGroup 15355 7 syms_34;
     AGroup 15353 43 syms_119]);
   (86162, 23, [AGroup 5 1 [sym_ppDirective]; AGroup 15011 1 [anon_sym_LBRACK];
     AGroup 15013 1 [anon_sym_LPAREN]; AGroup 15017 1 [anon_sym_POUND];
     AGroup 15029 1 [sym_kSpecialize]; AGroup 15035 1 [sym_kIf]; AGroup 15037 1 [sym_kInherited];
     AGroup 15039 1 [sym_kString]; AGroup 17364 1 [anon_sym_RBRACK];
     SGroup 3902 1 [aux_sym_caseLabel_repeat1]; SGroup 13288 1 [sym_range]; AGroup 3 2 syms_5;
     AGroup 15015 2 syms_6; AGroup 15019 2 syms_7; AGroup 15021 2 syms_8; AGroup 15023 2 syms_9;
     AGroup 15025 2 syms_10; AGroup 15033 2 syms_11; SGroup 8466 2 syms_12;
     SGroup 7201 3 syms_13; SGroup 9582 4 syms_14; AGroup 15027 5 syms_15; SGroup 7990 14 syms_17]);
   (86262, 23, [AGroup 5 1 [sym_ppDirective]; AGroup 15647 1 [anon_sym_LBRACK];
     AGroup 15653 1 [anon_sym_POUND]; AGroup 15667 1 [sym_kSpecialize]; AGroup 15671 1 [sym_kIf];
     AGroup 15673 1 [sym_kInherited]; AGroup 15745 1 [anon_sym_LPAREN];
     AGroup 17076 1 [sym_kString]; AGroup 17366 1 [anon_sym_RPAREN];
     SGroup 4095 1 [aux_sym_exprArgs_repeat1]; SGroup 15970 1 [sym_exprArgs]; AGroup 3 2 syms_5;
     AGroup 15651 2 syms_6; AGroup 15655 2 syms_7; AGroup 15657 2 syms_8; AGroup 15659 2 syms_9;
     AGroup 15661 2 syms_10; AGroup 15669 2 syms_11; SGroup 8129 2 syms_12;
     SGroup 7100 3 syms_13; SGroup 8456 4 syms_14; AGroup 15663 5 syms_15; SGroup 7786 14 syms_17]);
   (86362, 4, [AGroup 5 1 [sym_ppDirective]; AGroup 3 2 syms_5; AGroup 15355 7 syms_34;
     AGroup 15353 43 syms_120]);
   (86424, 23, [AGroup 5 1 [sym_ppDirective]; AGroup 15647 1 [anon_sym_LBRACK];
     AGroup 15653 1 [anon_sym_POUND]; AGroup 15667 1 [sym_kSpecialize]; AGroup 15671 1 [sym_kIf];
     AGroup 15673 1 [sym_kInherited]; AGroup 15745 1 [anon_sym_LPAREN];
     AGroup 17076 1 [sym_kString]; AGroup 17368 1 [anon_sym_RPAREN];
     SGroup 4095 1 [aux_sym_exprArgs_repeat1]; SGroup 15987 1 [sym_exprArgs]; AGroup 3 2 syms_5;
     AGroup 15651 2 syms_6; AGroup 15655 2 syms_7; AGroup 15657 2 syms_8; AGroup 15659 2 syms_9;
     AGroup 15661 2 syms_10; AGroup 15669 2 syms_11; SGroup 8129 2 syms_12;
     SGroup 7100 3 syms_13; SGroup 8456 4 syms_14; AGroup 15663 5 syms_15; SGroup 7786 14 syms_17]);
   (86524, 4, [AGroup 5 1 [sym_ppDirective]; AGroup 3 2 syms_5; AGroup 15355 7 syms_34;
     AGroup 15353 43 syms_121]);
   (86586, 4, [AGroup 5 1 [sym_ppDirective]; AGroup 3 2 syms_5; AGroup 11316 4 syms_25;
     AGroup 11311 46 syms_26]);
   (86648, 4, [AGroup 5 1 [sym_ppDirective]; AGroup 3 2 syms_5; AGroup 17372 4 syms_25;
     AGroup 17370 46 syms_26]);
   (86710, 23, [AGroup 5 1 [sym_ppDirective]; AGroup 15647 1 [anon_sym_LBRACK];
     AGroup 15653 1 [anon_sym_POUND]; AGroup 15667 1 [sym_kSpecialize]; AGroup 15671 1 [sym_kIf];
     AGroup 15673 1 [sym_kInherited]; AGroup 15745 1 [anon_sym_LPAREN];
     AGroup 17076 1 [sym_kString]; AGroup 17374 1 [anon_sym_RPAREN];
     SGroup 4095 1 [aux_sym_exprArgs_repeat1]; SGroup 14743 1 [sym_exprArgs]; AGroup 3 2 syms_5;
     AGroup 15651 2 syms_6; AGroup 15655 2 syms_7; AGroup 15657 2 syms_8; AGroup 15659 2 syms_9;
     AGroup 15661 2 syms_10; AGroup 15669 2 syms_11; SGroup 8129 2 syms_12;
     SGroup 7100 3 syms_13; SGroup 8456 4 syms_14; AGroup 15663 5 syms_15; SGroup 7786 14 syms_17]);
   (86810, 23, [AGroup 5 1 [sym_ppDirective]; AGroup 15647 1 [anon_sym_LBRACK];
     AGroup 15653 1 [anon_sym_POUND]; AGroup 15667 1 [sym_kSpecialize]; AGroup 15671 1 [sym_kIf];
     AGroup 15673 1 [sym_kInherited]; AGroup 15745 1 [anon_sym_LPAREN];
     AGroup 17076 1 [sym_kString]; AGroup 17376 1 [anon_sym_RPAREN];
     SGroup 4095 1 [aux_sym_exprArgs_repeat1]; SGroup 14791 1 [sym_exprArgs]; AGroup 3 2 syms_5;
     AGroup 15651 2 syms_6; AGroup 15655 2 syms_7; AGroup 15657 2 syms_8; AGroup 15659 2 syms_9;
     AGroup 15661 2 syms_10; AGroup 15669 2 syms_11; SGroup 8129 2 syms_12;
     SGroup 7100 3 syms_13; SGroup 8456 4 syms_14; AGroup 15663 5 syms_15; SGroup 7786 14 syms_17]);
   (86910, 4, [AGroup 5 1 [sym_ppDirective]; AGroup 3 2 syms_5; AGroup 17380 4 syms_25;
     AGroup 17378 46 syms_26]);
   (86972, 5, [AGroup 5 1 [sym_ppDirective]; AGroup 3 2 syms_5; AGroup 15492 7 syms_34;
     AGroup 15403 18 syms_36; AGroup 15490 25 syms_113]);
   (87036, 22, [AGroup 5 1 [sym_ppDirective]; AGroup 15895 1 [anon_sym_LBRACK];
     AGroup 15897 1 [anon_sym_LPAREN]; AGroup 15901 1 [anon_sym_POUND];
     AGroup 15915 1 [sym_kSpecialize]; AGroup 15919 1 [sym_kIf]; AGroup 15921 1 [sym_kInherited];
     AGroup 17230 1 [sym_kString]; AGroup 17382 1 [anon_sym_SEMI]; AGroup 3 2 syms_5;
     AGroup 15576 2 syms_112; AGroup 15899 2 syms_6; AGroup 15903 2 syms_7;
     AGroup 15905 2 syms_8; AGroup 15907 2 syms_9; AGroup 15909 2 syms_10;
     AGroup 15917 2 syms_11; SGroup 8314 2 syms_12; SGroup 7161 3 syms_13; SGroup 9090 4 syms_14;
     AGroup 15911 5 syms_15; SGroup 8003 14 syms_17]);
   (87134, 5, [AGroup 5 1 [sym_ppDirective]; AGroup 3 2 syms_5; AGroup 15496 7 syms_34;
     AGroup 15403 18 syms_36; AGroup 15494 25 syms_113]);
   (87198, 4, [AGroup 5 1 [sym_ppDirective]; AGroup 3 2 syms_5; AGroup 17386 4 syms_25;
     AGroup 17384 46 syms_26]);
   (87260, 23, [AGroup 5 1 [sym_ppDirective]; AGroup 15011 1 [anon_sym_LBRACK];
     AGroup 15013 1 [anon_sym_LPAREN]; AGroup 15017 1 [anon_sym_POUND];
     AGroup 15029 1 [sym_kSpecialize]; AGroup 15035 1 [sym_kIf]; AGroup 15037 1 [sym_kInherited];
     AGroup 15039 1 [sym_kString]; AGroup 17388 1 [anon_sym_RBRACK];
     SGroup 3906 1 [aux_sym_caseLabel_repeat1]; SGroup 13387 1 [sym_range]; AGroup 3 2 syms_5;
     AGroup 15015 2 syms_6; AGroup 15019 2 syms_7; AGroup 15021 2 syms_8; AGroup 15023 2 syms_9;
     AGroup 15025 2 syms_10; AGroup 15033 2 syms_11; SGroup 8466 2 syms_12;
     SGroup 7201 3 syms_13; SGroup 9385 4 syms_14; AGroup 15027 5 syms_15; SGroup 7990 14 syms_17]);
   (87360, 23, [AGroup 5 1 [sym_ppDirective]; AGroup 15011 1 [anon_sym_LBRACK];
     AGroup 15013 1 [anon_sym_LPAREN]; AGroup 15017 1 [anon_sym_POUND];
     AGroup 15029 1 [sym_kSpecialize]; AGroup 15035 1 [sym_kIf]; AGroup 15037 1 [sym_kInherited];
     AGroup 15039 1 [sym_kString]; AGroup 17390 1 [anon_sym_RBRACK];
     SGroup 4006 1 [aux_sym_caseLabel_repeat1]; SGroup 14075 1 [sym_range]; AGroup 3 2 syms_5;
     AGroup 15015 2 syms_6; AGroup 15019 2 syms_7; AGroup 15021 2 syms_8; AGroup 15023 2 syms_9;
     AGroup 15025 2 syms_10; AGroup 15033 2 syms_11; SGroup 8466 2 syms_12;
     SGroup 7201 3 syms_13; SGroup 9480 4 syms_14; AGroup 15027 5 syms_15; SGroup 7990 14 syms_17]);
   (87460, 12, [AGroup 17132 1 [sym_kDispId]; AGroup 17134 1 [sym_kPublic]; AGroup 17136 1 [sym_kExternal];
     AGroup 17138 1 [sym_kMessage]; AGroup 17140 1 [sym_kDeprecated];
     AGroup 17142 1 [sym_kExport]; AGroup 17144 1 [sym_kAlias]; AGroup 17392 1 [anon_sym_RBRACK];
     SGroup 3987 1 [aux_sym__procAttribute_repeat1]; SGroup 13175 2 syms_107; AGroup 3 3 syms_1;
     AGroup 1016 39 syms_33]);
   (87538, 23, [AGroup 5 1 [sym_ppDirective]; AGroup 15647 1 [anon_sym_LBRACK];
     AGroup 15653 1 [anon_sym_POUND]; AGroup 15667 1 [sym_kSpecialize]; AGroup 15671 1 [sym_kIf];
     AGroup 15673 1 [sym_kInherited]; AGroup 15745 1 [anon_sym_LPAREN];
     AGroup 17076 1 [sym_kString]; AGroup 17394 1 [anon_sym_RPAREN];
     SGroup 4095 1 [aux_sym_exprArgs_repeat1]; SGroup 14197 1 [sym_exprArgs]; AGroup 3 2 syms_5;
     AGroup 15651 2 syms_6; AGroup 15655 2 syms_7; AGroup 15657 2 syms_8; AGroup 15659 2 syms_9;
     AGroup 15661 2 syms_10; AGroup 15669 2 syms_11; SGroup 8129 2 syms_12;
     SGroup 7100 3 syms_13; SGroup 8456 4 syms_14; AGroup 15663 5 syms_15; SGroup 7786 14 syms_17]);
   (87638, 4, [AGroup 5 1 [sym_ppDirective]; AGroup 3 2 syms_5; AGroup 17398 4 syms_25;
     AGroup 17396 46 syms_26]);
   (87700, 23, [AGroup 5 1 [sym_ppDirective]; AGroup 15647 1 [anon_sym_LBRACK];
     AGroup 15653 1 [anon_sym_POUND]; AGroup 15667 1 [sym_kSpecialize]; AGroup 15671 1 [sym_kIf];
     AGroup 15673 1 [sym_kInherited]; AGroup 15745 1 [anon_sym_LPAREN];
     AGroup 17076 1 [sym_kString]; AGroup 17400 1 [anon_sym_RPAREN];
     SGroup 4095 1 [aux_sym_exprArgs_repeat1]; SGroup 14214 1 [sym_exprArgs]; AGroup 3 2 syms_5;
     AGroup 15651 2 syms_6; AGroup 15655 2 syms_7; AGroup 15657 2 syms_8; AGroup 15659 2 syms_9;
     AGroup 15661 2 syms_10; AGroup 15669 2 syms_11; SGroup 8129 2 syms_12;
     SGroup 7100 3 syms_13; SGroup 8456 4 syms_14; AGroup 15663 5 syms_15; SGroup 7786 14 syms_17])
  ].

(** States 3659 to 3758. *)
Definition small_runs_3659 : list small_run :=
  [
   (87800, 4, [AGroup 5 1 [sym_ppDirective]; AGroup 3 2 syms_5; AGroup 15295 4 syms_25;
     AGroup 15293 46 syms_122]);
   (87862, 23, [AGroup 5 1 [sym_ppDirective]; AGroup 15647 1 [anon_sym_LBRACK];
     AGroup 15653 1 [anon_sym_POUND]; AGroup 15667 1 [sym_kSpecialize]; AGroup 15671 1 [sym_kIf];
     AGroup 15673 1 [sym_kInherited]; AGroup 15745 1 [anon_sym_LPAREN];
     AGroup 17076 1 [sym_kString]; AGroup 17402 1 [anon_sym_RPAREN];
     SGroup 4095 1 [aux_sym_exprArgs_repeat1]; SGroup 15565 1 [sym_exprArgs]; AGroup 3 2 syms_5;
     AGroup 15651 2 syms_6; AGroup 15655 2 syms_7; AGroup 15657 2 syms_8; AGroup 15659 2 syms_9;
     AGroup 15661 2 syms_10; AGroup 15669 2 syms_11; SGroup 8129 2 syms_12;
     SGroup 7100 3 syms_13; SGroup 8456 4 syms_14; AGroup 15663 5 syms_15; SGroup 7786 14 syms_17]);
   (87962, 23, [AGroup 5 1 [sym_ppDirective]; AGroup 15011 1 [anon_sym_LBRACK];
     AGroup 15013 1 [anon_sym_LPAREN]; AGroup 15017 1 [anon_sym_POUND];
     AGroup 15029 1 [sym_kSpecialize]; AGroup 15035 1 [sym_kIf]; AGroup 15037 1 [sym_kInherited];
     AGroup 15039 1 [sym_kString]; AGroup 17404 1 [anon_sym_RBRACK];
     SGroup 3822 1 [aux_sym_caseLabel_repeat1]; SGroup 13339 1 [sym_range]; AGroup 3 2 syms_5;
     AGroup 15015 2 syms_6; AGroup 15019 2 syms_7; AGroup 15021 2 syms_8; AGroup 15023 2 syms_9;
     AGroup 15025 2 syms_10; AGroup 15033 2 syms_11; SGroup 8466 2 syms_12;
     SGroup 7201 3 syms_13; SGroup 9389 4 syms_14; AGroup 15027 5 syms_15; SGroup 7990 14 syms_17]);
   (88062, 21, [AGroup 5 1 [sym_ppDirective]; AGroup 16021 1 [anon_sym_LBRACK];
     AGroup 16023 1 [anon_sym_LPAREN]; AGroup 16027 1 [anon_sym_POUND];
     AGroup 16041 1 [sym_kSpecialize]; AGroup 16045 1 [sym_kIf]; AGroup 16047 1 [sym_kInherited];
     AGroup 17344 1 [sym_kString]; AGroup 3 2 syms_5; AGroup 16025 2 syms_6;
     AGroup 16029 2 syms_7; AGroup 16031 2 syms_8; AGroup 16033 2 syms_9; AGroup 16035 2 syms_10;
     AGroup 16043 2 syms_11; SGroup 9151 2 syms_12; AGroup 14747 3 syms_117;
     SGroup 7393 3 syms_13; SGroup 9738 4 syms_14; AGroup 16037 5 syms_15; SGroup 8705 14 syms_17]);
   (88158, 4, [AGroup 5 1 [sym_ppDirective]; AGroup 3 2 syms_5; AGroup 17408 4 syms_25;
     AGroup 17406 46 syms_26]);
   (88220, 4, [AGroup 5 1 [sym_ppDirective]; AGroup 3 2 syms_5; AGroup 17412 4 syms_25;
     AGroup 17410 46 syms_26]);
   (88282, 23, [AGroup 5 1 [sym_ppDirective]; AGroup 15647 1 [anon_sym_LBRACK];
     AGroup 15653 1 [anon_sym_POUND]; AGroup 15667 1 [sym_kSpecialize]; AGroup 15671 1 [sym_kIf];
     AGroup 15673 1 [sym_kInherited]; AGroup 15745 1 [anon_sym_LPAREN];
     AGroup 17076 1 [sym_kString]; AGroup 17414 1 [anon_sym_RPAREN];
     SGroup 4095 1 [aux_sym_exprArgs_repeat1]; SGroup 15201 1 [sym_exprArgs]; AGroup 3 2 syms_5;
     AGroup 15651 2 syms_6; AGroup 15655 2 syms_7; AGroup 15657 2 syms_8; AGroup 15659 2 syms_9;
     AGroup 15661 2 syms_10; AGroup 15669 2 syms_11; SGroup 8129 2 syms_12;
     SGroup 7100 3 syms_13; SGroup 8456 4 syms_14; AGroup 15663 5 syms_15; SGroup 7786 14 syms_17]);
   (88382, 23, [AGroup 5 1 [sym_ppDirective]; AGroup 15011 1 [anon_sym_LBRACK];
     AGroup 15013 1 [anon_sym_LPAREN]; AGroup 15017 1 [anon_sym_POUND];
     AGroup 15029 1 [sym_kSpecialize]; AGroup 15035 1 [sym_kIf]; AGroup 15037 1 [sym_kInherited];
     AGroup 15039 1 [sym_kString]; AGroup 17416 1 [anon_sym_RBRACK];
     SGroup 3863 1 [aux_sym_caseLabel_repeat1]; SGroup 14091 1 [sym_range]; AGroup 3 2 syms_5;
     AGroup 15015 2 syms_6; AGroup 15019 2 syms_7; AGroup 15021 2 syms_8; AGroup 15023 2 syms_9;
     AGroup 15025 2 syms_10; AGroup 15033 2 syms_11; SGroup 8466 2 syms_12;
     SGroup 7201 3 syms_13; SGroup 9463 4 syms_14; AGroup 15027 5 syms_15; SGroup 7990 14 syms_17]);
   (88482, 21, [AGroup 5 1 [sym_ppDirective]; AGroup 16131 1 [anon_sym_LBRACK];
     AGroup 16137 1 [anon_sym_POUND]; AGroup 16151 1 [sym_kSpecialize]; AGroup 16155 1 [sym_kIf];
     AGroup 16157 1 [sym_kInherited]; AGroup 17418 1 [anon_sym_LPAREN];
     AGroup 17420 1 [sym_kString]; AGroup 3 2 syms_5; AGroup 16135 2 syms_6;
     AGroup 16139 2 syms_7; AGroup 16141 2 syms_8; AGroup 16143 2 syms_9; AGroup 16145 2 syms_10;
     AGroup 16153 2 syms_11; SGroup 8630 2 syms_12; SGroup 7260 3 syms_13;
     SGroup 12870 3 syms_56; SGroup 9465 4 syms_14; AGroup 16147 5 syms_15;
     SGroup 8446 14 syms_17]);
   (88578, 23, [AGroup 5 1 [sym_ppDirective]; AGroup 15011 1 [anon_sym_LBRACK];
     AGroup 15013 1 [anon_sym_LPAREN]; AGroup 15017 1 [anon_sym_POUND];
     AGroup 15029 1 [sym_kSpecialize]; AGroup 15035 1 [sym_kIf]; AGroup 15037 1 [sym_kInherited];
     AGroup 15039 1 [sym_kString]; AGroup 17422 1 [anon_sym_RBRACK];
     SGroup 4034 1 [aux_sym_caseLabel_repeat1]; SGroup 14045 1 [sym_range]; AGroup 3 2 syms_5;
     AGroup 15015 2 syms_6; AGroup 15019 2 syms_7; AGroup 15021 2 syms_8; AGroup 15023 2 syms_9;
     AGroup 15025 2 syms_10; AGroup 15033 2 syms_11; SGroup 8466 2 syms_12;
     SGroup 7201 3 syms_13; SGroup 9507 4 syms_14; AGroup 15027 5 syms_15; SGroup 7990 14 syms_17]);
   (88678, 23, [AGroup 5 1 [sym_ppDirective]; AGroup 15647 1 [anon_sym_LBRACK];
     AGroup 15653 1 [anon_sym_POUND]; AGroup 15667 1 [sym_kSpecialize]; AGroup 15671 1 [sym_kIf];
     AGroup 15673 1 [sym_kInherited]; AGroup 15745 1 [anon_sym_LPAREN];
     AGroup 17076 1 [sym_kString]; AGroup 17424 1 [anon_sym_RPAREN];
     SGroup 4095 1 [aux_sym_exprArgs_repeat1]; SGroup 14912 1 [sym_exprArgs]; AGroup 3 2 syms_5;
     AGroup 15651 2 syms_6; AGroup 15655 2 syms_7; AGroup 15657 2 syms_8; AGroup 15659 2 syms_9;
     AGroup 15661 2 syms_10; AGroup 15669 2 syms_11; SGroup 8129 2 syms_12;
     SGroup 7100 3 syms_13; SGroup 8456 4 syms_14; AGroup 15663 5 syms_15; SGroup 7786 14 syms_17]);
   (88778, 23, [AGroup 5 1 [sym_ppDirective]; AGroup 15011 1 [anon_sym_LBRACK];
     AGroup 15013 1 [anon_sym_LPAREN]; AGroup 15017 1 [anon_sym_POUND];
     AGroup 15029 1 [sym_kSpecialize]; AGroup 15035 1 [sym_kIf]; AGroup 15037 1 [sym_kInherited];
     AGroup 15039 1 [sym_kString]; AGroup 17426 1 [anon_sym_RBRACK];
     SGroup 3908 1 [aux_sym_caseLabel_repeat1]; SGroup 13529 1 [sym_range]; AGroup 3 2 syms_5;
     AGroup 15015 2 syms_6; AGroup 15019 2 syms_7; AGroup 15021 2 syms_8; AGroup 15023 2 syms_9;
     AGroup 15025 2 syms_10; AGroup 15033 2 syms_11; SGroup 8466 2 syms_12;
     SGroup 7201 3 syms_13; SGroup 9401 4 syms_14; AGroup 15027 5 syms_15; SGroup 7990 14 syms_17]);
   (88878, 23, [AGroup 5 1 [sym_ppDirective]; AGroup 15647 1 [anon_sym_LBRACK];
     AGroup 15653 1 [anon_sym_POUND]; AGroup 15667 1 [sym_kSpecialize]; AGroup 15671 1 [sym_kIf];
     AGroup 15673 1 [sym_kInherited]; AGroup 15745 1 [anon_sym_LPAREN];
     AGroup 17076 1 [sym_kString]; AGroup 17428 1 [anon_sym_RPAREN];
     SGroup 4095 1 [aux_sym_exprArgs_repeat1]; SGroup 14293 1 [sym_exprArgs]; AGroup 3 2 syms_5;
     AGroup 15651 2 syms_6; AGroup 15655 2 syms_7; AGroup 15657 2 syms_8; AGroup 15659 2 syms_9;
     AGroup 15661 2 syms_10; AGroup 15669 2 syms_11; SGroup 8129 2 syms_12;
     SGroup 7100 3 syms_13; SGroup 8456 4 syms_14; AGroup 15663 5 syms_15; SGroup 7786 14 syms_17]);
   (88978, 23, [AGroup 5 1 [sym_ppDirective]; AGroup 15647 1 [anon_sym_LBRACK];
     AGroup 15653 1 [anon_sym_POUND]; AGroup 15667 1 [sym_kSpecialize]; AGroup 15671 1 [sym_kIf];
     AGroup 15673 1 [sym_kInherited]; AGroup 15745 1 [anon_sym_LPAREN];
     AGroup 17076 1 [sym_kString]; AGroup 17430 1 [anon_sym_RPAREN];
     SGroup 4095 1 [aux_sym_exprArgs_repeat1]; SGroup 14301 1 [sym_exprArgs]; AGroup 3 2 syms_5;
     AGroup 15651 2 syms_6; AGroup 15655 2 syms_7; AGroup 15657 2 syms_8; AGroup 15659 2 syms_9;
     AGroup 15661 2 syms_10; AGroup 15669 2 syms_11; SGroup 8129 2 syms_12;
     SGroup 7100 3 syms_13; SGroup 8456 4 syms_14; AGroup 15663 5 syms_15; SGroup 7786 14 syms_17]);
   (89078, 21, [AGroup 5 1 [sym_ppDirective]; AGroup 16375 1 [anon_sym_LBRACK];
     AGroup 16381 1 [anon_sym_POUND]; AGroup 16395 1 [sym_kSpecialize]; AGroup 16399 1 [sym_kIf];
     AGroup 16401 1 [sym_kInherited]; AGroup 17432 1 [anon_sym_LPAREN];
     AGroup 17434 1 [sym_kString]; AGroup 3 2 syms_5; AGroup 16379 2 syms_6;
     AGroup 16383 2 syms_7; AGroup 16385 2 syms_8; AGroup 16387 2 syms_9; AGroup 16389 2 syms_10;
     AGroup 16397 2 syms_11; SGroup 8530 2 syms_12; SGroup 7169 3 syms_13;
     SGroup 12219 3 syms_56; SGroup 9205 4 syms_14; AGroup 16391 5 syms_15;
     SGroup 8170 14 syms_17]);
   (89174, 23, [AGroup 5 1 [sym_ppDirective]; AGroup 15011 1 [anon_sym_LBRACK];
     AGroup 15013 1 [anon_sym_LPAREN]; AGroup 15017 1 [anon_sym_POUND];
     AGroup 15029 1 [sym_kSpecialize]; AGroup 15035 1 [sym_kIf]; AGroup 15037 1 [sym_kInherited];
     AGroup 15039 1 [sym_kString]; AGroup 17436 1 [anon_sym_RBRACK];
     SGroup 3807 1 [aux_sym_declArray_repeat1]; SGroup 13503 1 [sym_range]; AGroup 3 2 syms_5;
     AGroup 15015 2 syms_6; AGroup 15019 2 syms_7; AGroup 15021 2 syms_8; AGroup 15023 2 syms_9;
     AGroup 15025 2 syms_10; AGroup 15033 2 syms_11; SGroup 8466 2 syms_12;
     SGroup 7201 3 syms_13; SGroup 9409 4 syms_14; AGroup 15027 5 syms_15; SGroup 7990 14 syms_17]);
   (89274, 23, [AGroup 5 1 [sym_ppDirective]; AGroup 15647 1 [anon_sym_LBRACK];
     AGroup 15653 1 [anon_sym_POUND]; AGroup 15667 1 [sym_kSpecialize]; AGroup 15671 1 [sym_kIf];
     AGroup 15673 1 [sym_kInherited]; AGroup 15745 1 [anon_sym_LPAREN];
     AGroup 17076 1 [sym_kString]; AGroup 17438 1 [anon_sym_RPAREN];
     SGroup 4095 1 [aux_sym_exprArgs_repeat1]; SGroup 14271 1 [sym_exprArgs]; AGroup 3 2 syms_5;
     AGroup 15651 2 syms_6; AGroup 15655 2 syms_7; AGroup 15657 2 syms_8; AGroup 15659 2 syms_9;
     AGroup 15661 2 syms_10; AGroup 15669 2 syms_11; SGroup 8129 2 syms_12;
     SGroup 7100 3 syms_13; SGroup 8456 4 syms_14; AGroup 15663 5 syms_15; SGroup 7786 14 syms_17]);
   (89374, 23, [AGroup 5 1 [sym_ppDirective]; AGroup 15647 1 [anon_sym_LBRACK];
     AGroup 15653 1 [anon_sym_POUND]; AGroup 15667 1 [sym_kSpecialize]; AGroup 15671 1 [sym_kIf];
     AGroup 15673 1 [sym_kInherited]; AGroup 15745 1 [anon_sym_LPAREN];
     AGroup 17076 1 [sym_kString]; AGroup 17440 1 [anon_sym_RPAREN];
     SGroup 4095 1 [aux_sym_exprArgs_repeat1]; SGroup 15947 1 [sym_exprArgs]; AGroup 3 2 syms_5;
     AGroup 15651 2 syms_6; AGroup 15655 2 syms_7; AGroup 15657 2 syms_8; AGroup 15659 2 syms_9;
     AGroup 15661 2 syms_10; AGroup 15669 2 syms_11; SGroup 8129 2 syms_12;
     SGroup 7100 3 syms_13; SGroup 8456 4 syms_14; AGroup 15663 5 syms_15; SGroup 7786 14 syms_17]);
   (89474, 23, [AGroup 5 1 [sym_ppDirective]; AGroup 15011 1 [anon_sym_LBRACK];
     AGroup 15013 1 [anon_sym_LPAREN]; AGroup 15017 1 [anon_sym_POUND];
     AGroup 15029 1 [sym_kSpecialize]; AGroup 15035 1 [sym_kIf]; AGroup 15037 1 [sym_kInherited];
     AGroup 15039 1 [sym_kString]; AGroup 17442 1 [anon_sym_RBRACK];
     SGroup 3910 1 [aux_sym_caseLabel_repeat1]; SGroup 13579 1 [sym_range]; AGroup 3 2 syms_5;
     AGroup 15015 2 syms_6; AGroup 15019 2 syms_7; AGroup 15021 2 syms_8; AGroup 15023 2 syms_9;
     AGroup 15025 2 syms_10; AGroup 15033 2 syms_11; SGroup 8466 2 syms_12;
     SGroup 7201 3 syms_13; SGroup 9414 4 syms_14; AGroup 15027 5 syms_15; SGroup 7990 14 syms_17]);
   (89574, 23, [AGroup 5 1 [sym_ppDirective]; AGroup 15647 1 [anon_sym_LBRACK];
     AGroup 15653 1 [anon_sym_POUND]; AGroup 15667 1 [sym_kSpecialize]; AGroup 15671 1 [sym_kIf];
     AGroup 15673 1 [sym_kInherited]; AGroup 15745 1 [anon_sym_LPAREN];
     AGroup 17076 1 [sym_kString]; AGroup 17444 1 [anon_sym_RPAREN];
     SGroup 4095 1 [aux_sym_exprArgs_repeat1]; SGroup 14340 1 [sym_exprArgs]; AGroup 3 2 syms_5;
     AGroup 15651 2 syms_6; AGroup 15655 2 syms_7; AGroup 15657 2 syms_8; AGroup 15659 2 syms_9;
     AGroup 15661 2 syms_10; AGroup 15669 2 syms_11; SGroup 8129 2 syms_12;
     SGroup 7100 3 syms_13; SGroup 8456 4 syms_14; AGroup 15663 5 syms_15; SGroup 7786 14 syms_17]);
   (89674, 12, [AGroup 17132 1 [sym_kDispId]; AGroup 17134 1 [sym_kPublic]; AGroup 17136 1 [sym_kExternal];
     AGroup 17138 1 [sym_kMessage]; AGroup 17140 1 [sym_kDeprecated];
     AGroup 17142 1 [sym_kExport]; AGroup 17144 1 [sym_kAlias]; AGroup 17446 1 [anon_sym_RBRACK];
     SGroup 3990 1 [aux_sym__procAttribute_repeat1]; SGroup 13226 2 syms_107; AGroup 3 3 syms_1;
     AGroup 1016 39 syms_33]);
   (89752, 23, [AGroup 5 1 [sym_ppDirective]; AGroup 15647 1 [anon_sym_LBRACK];
     AGroup 15653 1 [anon_sym_POUND]; AGroup 15667 1 [sym_kSpecialize]; AGroup 15671 1 [sym_kIf];
     AGroup 15673 1 [sym_kInherited]; AGroup 15745 1 [anon_sym_LPAREN];
     AGroup 17076 1 [sym_kString]; AGroup 17448 1 [anon_sym_RPAREN];
     SGroup 4095 1 [aux_sym_exprArgs_repeat1]; SGroup 14347 1 [sym_exprArgs]; AGroup 3 2 syms_5;
     AGroup 15651 2 syms_6; AGroup 15655 2 syms_7; AGroup 15657 2 syms_8; AGroup 15659 2 syms_9;
     AGroup 15661 2 syms_10; AGroup 15669 2 syms_11; SGroup 8129 2 syms_12;
     SGroup 7100 3 syms_13; SGroup 8456 4 syms_14; AGroup 15663 5 syms_15; SGroup 7786 14 syms_17]);
   (89852, 23, [AGroup 5 1 [sym_ppDirective]; AGroup 15011 1 [anon_sym_LBRACK];
     AGroup 15013 1 [anon_sym_LPAREN]; AGroup 15017 1 [anon_sym_POUND];
     AGroup 15029 1 [sym_kSpecialize]; AGroup 15035 1 [sym_kIf]; AGroup 15037 1 [sym_kInherited];
     AGroup 15039 1 [sym_kString]; AGroup 17450 1 [anon_sym_RBRACK];
     SGroup 3843 1 [aux_sym_caseLabel_repeat1]; SGroup 13202 1 [sym_range]; AGroup 3 2 syms_5;
     AGroup 15015 2 syms_6; AGroup 15019 2 syms_7; AGroup 15021 2 syms_8; AGroup 15023 2 syms_9;
     AGroup 15025 2 syms_10; AGroup 15033 2 syms_11; SGroup 8466 2 syms_12;
     SGroup 7201 3 syms_13; SGroup 9596 4 syms_14; AGroup 15027 5 syms_15; SGroup 7990 14 syms_17]);
   (89952, 23, [AGroup 5 1 [sym_ppDirective]; AGroup 15647 1 [anon_sym_LBRACK];
     AGroup 15653 1 [anon_sym_POUND]; AGroup 15667 1 [sym_kSpecialize]; AGroup 15671 1 [sym_kIf];
     AGroup 15673 1 [sym_kInherited]; AGroup 15745 1 [anon_sym_LPAREN];
     AGroup 17076 1 [sym_kString]; AGroup 17452 1 [anon_sym_RPAREN];
     SGroup 4095 1 [aux_sym_exprArgs_repeat1]; SGroup 15975 1 [sym_exprArgs]; AGroup 3 2 syms_5;
     AGroup 15651 2 syms_6; AGroup 15655 2 syms_7; AGroup 15657 2 syms_8; AGroup 15659 2 syms_9;
     AGroup 15661 2 syms_10; AGroup 15669 2 syms_11; SGroup 8129 2 syms_12;
     SGroup 7100 3 syms_13; SGroup 8456 4 syms_14; AGroup 15663 5 syms_15; SGroup 7786 14 syms_17]);
   (90052, 23, [AGroup 5 1 [sym_ppDirective]; AGroup 15011 1 [anon_sym_LBRACK];
     AGroup 15013 1 [anon_sym_LPAREN]; AGroup 15017 1 [anon_sym_POUND];
     AGroup 15029 1 [sym_kSpecialize]; AGroup 15035 1 [sym_kIf]; AGroup 15037 1 [sym_kInherited];
     AGroup 15039 1 [sym_kString]; AGroup 17454 1 [anon_sym_RBRACK];
     SGroup 3912 1 [aux_sym_caseLabel_repeat1]; SGroup 13652 1 [sym_range]; AGroup 3 2 syms_5;
     AGroup 15015 2 syms_6; AGroup 15019 2 syms_7; AGroup 15021 2 syms_8; AGroup 15023 2 syms_9;
     AGroup 15025 2 syms_10; AGroup 15033 2 syms_11; SGroup 8466 2 syms_12;
     SGroup 7201 3 syms_13; SGroup 9431 4 syms_14; AGroup 15027 5 syms_15; SGroup 7990 14 syms_17]);
   (90152, 23, [AGroup 5 1 [sym_ppDirective]; AGroup 15647 1 [anon_sym_LBRACK];
     AGroup 15653 1 [anon_sym_POUND]; AGroup 15667 1 [sym_kSpecialize]; AGroup 15671 1 [sym_kIf];
     AGroup 15673 1 [sym_kInherited]; AGroup 15745 1 [anon_sym_LPAREN];
     AGroup 17076 1 [sym_kString]; AGroup 17456 1 [anon_sym_RPAREN];
     SGroup 4095 1 [aux_sym_exprArgs_repeat1]; SGroup 14399 1 [sym_exprArgs]; AGroup 3 2 syms_5;
     AGroup 15651 2 syms_6; AGroup 15655 2 syms_7; AGroup 15657 2 syms_8; AGroup 15659 2 syms_9;
     AGroup 15661 2 syms_10; AGroup 15669 2 syms_11; SGroup 8129 2 syms_12;
     SGroup 7100 3 syms_13; SGroup 8456 4 syms_14; AGroup 15663 5 syms_15; SGroup 7786 14 syms_17]);
   (90252, 23, [AGroup 5 1 [sym_ppDirective]; AGroup 15647 1 [anon_sym_LBRACK];
     AGroup 15653 1 [anon_sym_POUND]; AGroup 15667 1 [sym_kSpecialize]; AGroup 15671 1 [sym_kIf];
     AGroup 15673 1 [sym_kInherited]; AGroup 15745 1 [anon_sym_LPAREN];
     AGroup 17076 1 [sym_kString]; AGroup 17458 1 [anon_sym_RPAREN];
     SGroup 4095 1 [aux_sym_exprArgs_repeat1]; SGroup 14404 1 [sym_exprArgs]; AGroup 3 2 syms_5;
     AGroup 15651 2 syms_6; AGroup 15655 2 syms_7; AGroup 15657 2 syms_8; AGroup 15659 2 syms_9;
     AGroup 15661 2 syms_10; AGroup 15669 2 syms_11; SGroup 8129 2 syms_12;
     SGroup 7100 3 syms_13; SGroup 8456 4 syms_14; AGroup 15663 5 syms_15; SGroup 7786 14 syms_17]);
   (90352, 23, [AGroup 5 1 [sym_ppDirective]; AGroup 15647 1 [anon_sym_LBRACK];
     AGroup 15653 1 [anon_sym_POUND]; AGroup 15667 1 [sym_kSpecialize]; AGroup 15671 1 [sym_kIf];
     AGroup 15673 1 [sym_kInherited]; AGroup 15745 1 [anon_sym_LPAREN];
     AGroup 17076 1 [sym_kString]; AGroup 17460 1 [anon_sym_RPAREN];
     SGroup 4095 1 [aux_sym_exprArgs_repeat1]; SGroup 14933 1 [sym_exprArgs]; AGroup 3 2 syms_5;
     AGroup 15651 2 syms_6; AGroup 15655 2 syms_7; AGroup 15657 2 syms_8; AGroup 15659 2 syms_9;
     AGroup 15661 2 syms_10; AGroup 15669 2 syms_11; SGroup 8129 2 syms_12;
     SGroup 7100 3 syms_13; SGroup 8456 4 syms_14; AGroup 15663 5 syms_15; SGroup 7786 14 syms_17]);
   (90452, 23, [AGroup 5 1 [sym_ppDirective]; AGroup 15011 1 [anon_sym_LBRACK];
     AGroup 15013 1 [anon_sym_LPAREN]; AGroup 15017 1 [anon_sym_POUND];
     AGroup 15029 1 [sym_kSpecialize]; AGroup 15035 1 [sym_kIf]; AGroup 15037 1 [sym_kInherited];
     AGroup 15039 1 [sym_kString]; AGroup 17462 1 [anon_sym_RBRACK];
     SGroup 3914 1 [aux_sym_caseLabel_repeat1]; SGroup 13697 1 [sym_range]; AGroup 3 2 syms_5;
     AGroup 15015 2 syms_6; AGroup 15019 2 syms_7; AGroup 15021 2 syms_8; AGroup 15023 2 syms_9;
     AGroup 15025 2 syms_10; AGroup 15033 2 syms_11; SGroup 8466 2 syms_12;
     SGroup 7201 3 syms_13; SGroup 9440 4 syms_14; AGroup 15027 5 syms_15; SGroup 7990 14 syms_17]);
   (90552, 23, [AGroup 5 1 [sym_ppDirective]; AGroup 15647 1 [anon_sym_LBRACK];
     AGroup 15653 1 [anon_sym_POUND]; AGroup 15667 1 [sym_kSpecialize]; AGroup 15671 1 [sym_kIf];
     AGroup 15673 1 [sym_kInherited]; AGroup 15745 1 [anon_sym_LPAREN];
     AGroup 17076 1 [sym_kString]; AGroup 17464 1 [anon_sym_RPAREN];
     SGroup 4095 1 [aux_sym_exprArgs_repeat1]; SGroup 14449 1 [sym_exprArgs]; AGroup 3 2 syms_5;
     AGroup 15651 2 syms_6; AGroup 15655 2 syms_7; AGroup 15657 2 syms_8; AGroup 15659 2 syms_9;
     AGroup 15661 2 syms_10; AGroup 15669 2 syms_11; SGroup 8129 2 syms_12;
     SGroup 7100 3 syms_13; SGroup 8456 4 syms_14; AGroup 15663 5 syms_15; SGroup 7786 14 syms_17]);
   (90652, 23, [AGroup 5 1 [sym_ppDirective]; AGroup 15647 1 [anon_sym_LBRACK];
     AGroup 15653 1 [anon_sym_POUND]; AGroup 15667 1 [sym_kSpecialize]; AGroup 15671 1 [sym_kIf];
     AGroup 15673 1 [sym_kInherited]; AGroup 15745 1 [anon_sym_LPAREN];
     AGroup 17076 1 [sym_kString]; AGroup 17466 1 [anon_sym_RPAREN];
     SGroup 4095 1 [aux_sym_exprArgs_repeat1]; SGroup 14454 1 [sym_exprArgs]; AGroup 3 2 syms_5;
     AGroup 15651 2 syms_6; AGroup 15655 2 syms_7; AGroup 15657 2 syms_8; AGroup 15659 2 syms_9;
     AGroup 15661 2 syms_10; AGroup 15669 2 syms_11; SGroup 8129 2 syms_12;
     SGroup 7100 3 syms_13; SGroup 8456 4 syms_14; AGroup 15663 5 syms_15; SGroup 7786 14 syms_17]);
   (90752, 21, [AGroup 5 1 [sym_ppDirective]; AGroup 15647 1 [anon_sym_LBRACK];
     AGroup 15649 1 [anon_sym_LPAREN]; AGroup 15653 1 [anon_sym_POUND];
     AGroup 15667 1 [sym_kSpecialize]; AGroup 15673 1 [sym_kInherited];
     AGroup 15675 1 [sym_kString]; AGroup 15755 1 [sym_kIf]; AGroup 3 2 syms_5;
     AGroup 15651 2 syms_6; AGroup 15655 2 syms_7; AGroup 15657 2 syms_8; AGroup 15669 2 syms_11;
     AGroup 15747 2 syms_9; AGroup 15749 2 syms_10; SGroup 8129 2 syms_12; SGroup 7100 3 syms_13;
     SGroup 13979 3 syms_56; SGroup 9426 4 syms_14; AGroup 15751 5 syms_15;
     SGroup 8464 14 syms_17]);
   (90848, 5, [AGroup 5 1 [sym_ppDirective]; AGroup 3 2 syms_5; AGroup 15504 7 syms_34;
     AGroup 15403 18 syms_36; AGroup 15502 25 syms_104]);
   (90912, 23, [AGroup 5 1 [sym_ppDirective]; AGroup 15011 1 [anon_sym_LBRACK];
     AGroup 15013 1 [anon_sym_LPAREN]; AGroup 15017 1 [anon_sym_POUND];
     AGroup 15029 1 [sym_kSpecialize]; AGroup 15035 1 [sym_kIf]; AGroup 15037 1 [sym_kInherited];
     AGroup 15039 1 [sym_kString]; AGroup 17468 1 [anon_sym_RBRACK];
     SGroup 3916 1 [aux_sym_caseLabel_repeat1]; SGroup 13734 1 [sym_range]; AGroup 3 2 syms_5;
     AGroup 15015 2 syms_6; AGroup 15019 2 syms_7; AGroup 15021 2 syms_8; AGroup 15023 2 syms_9;
     AGroup 15025 2 syms_10; AGroup 15033 2 syms_11; SGroup 8466 2 syms_12;
     SGroup 7201 3 syms_13; SGroup 9447 4 syms_14; AGroup 15027 5 syms_15; SGroup 7990 14 syms_17]);
   (91012, 23, [AGroup 5 1 [sym_ppDirective]; AGroup 15647 1 [anon_sym_LBRACK];
     AGroup 15653 1 [anon_sym_POUND]; AGroup 15667 1 [sym_kSpecialize]; AGroup 15671 1 [sym_kIf];
     AGroup 15673 1 [sym_kInherited]; AGroup 15745 1 [anon_sym_LPAREN];
     AGroup 17076 1 [sym_kString]; AGroup 17470 1 [anon_sym_RPAREN];
     SGroup 4095 1 [aux_sym_exprArgs_repeat1]; SGroup 14496 1 [sym_exprArgs]; AGroup 3 2 syms_5;
     AGroup 15651 2 syms_6; AGroup 15655 2 syms_7; AGroup 15657 2 syms_8; AGroup 15659 2 syms_9;
     AGroup 15661 2 syms_10; AGroup 15669 2 syms_11; SGroup 8129 2 syms_12;
     SGroup 7100 3 syms_13; SGroup 8456 4 syms_14; AGroup 15663 5 syms_15; SGroup 7786 14 syms_17]);
   (91112, 12, [AGroup 17132 1 [sym_kDispId]; AGroup 17134 1 [sym_kPublic]; AGroup 17136 1 [sym_kExternal];
     AGroup 17138 1 [sym_kMessage]; AGroup 17140 1 [sym_kDeprecated];
     AGroup 17142 1 [sym_kExport]; AGroup 17144 1 [sym_kAlias]; AGroup 17472 1 [anon_sym_RBRACK];
     SGroup 3991 1 [aux_sym__procAttribute_repeat1]; SGroup 13259 2 syms_107; AGroup 3 3 syms_1;
     AGroup 1016 39 syms_33]);
   (91190, 23, [AGroup 5 1 [sym_ppDirective]; AGroup 15647 1 [anon_sym_LBRACK];
     AGroup 15653 1 [anon_sym_POUND]; AGroup 15667 1 [sym_kSpecialize]; AGroup 15671 1 [sym_kIf];
     AGroup 15673 1 [sym_kInherited]; AGroup 15745 1 [anon_sym_LPAREN];
     AGroup 17076 1 [sym_kString]; AGroup 17474 1 [anon_sym_RPAREN];
     SGroup 4095 1 [aux_sym_exprArgs_repeat1]; SGroup 14506 1 [sym_exprArgs]; AGroup 3 2 syms_5;
     AGroup 15651 2 syms_6; AGroup 15655 2 syms_7; AGroup 15657 2 syms_8; AGroup 15659 2 syms_9;
     AGroup 15661 2 syms_10; AGroup 15669 2 syms_11; SGroup 8129 2 syms_12;
     SGroup 7100 3 syms_13; SGroup 8456 4 syms_14; AGroup 15663 5 syms_15; SGroup 7786 14 syms_17]);
   (91290, 23, [AGroup 5 1 [sym_ppDirective]; AGroup 15011 1 [anon_sym_LBRACK];
     AGroup 15013 1 [anon_sym_LPAREN]; AGroup 15017 1 [anon_sym_POUND];
     AGroup 15029 1 [sym_kSpecialize]; AGroup 15035 1 [sym_kIf]; AGroup 15037 1 [sym_kInherited];
     AGroup 15039 1 [sym_kString]; AGroup 17476 1 [anon_sym_RBRACK];
     SGroup 3918 1 [aux_sym_caseLabel_repeat1]; SGroup 13772 1 [sym_range]; AGroup 3 2 syms_5;
     AGroup 15015 2 syms_6; AGroup 15019 2 syms_7; AGroup 15021 2 syms_8; AGroup 15023 2 syms_9;
     AGroup 15025 2 syms_10; AGroup 15033 2 syms_11; SGroup 8466 2 syms_12;
     SGroup 7201 3 syms_13; SGroup 9452 4 syms_14; AGroup 15027 5 syms_15; SGroup 7990 14 syms_17]);
   (91390, 23, [AGroup 5 1 [sym_ppDirective]; AGroup 15647 1 [anon_sym_LBRACK];
     AGroup 15653 1 [anon_sym_POUND]; AGroup 15667 1 [sym_kSpecialize]; AGroup 15671 1 [sym_kIf];
     AGroup 15673 1 [sym_kInherited]; AGroup 15745 1 [anon_sym_LPAREN];
     AGroup 17076 1 [sym_kString]; AGroup 17478 1 [anon_sym_RPAREN];
     SGroup 4095 1 [aux_sym_exprArgs_repeat1]; SGroup 14548 1 [sym_exprArgs]; AGroup 3 2 syms_5;
     AGroup 15651 2 syms_6; AGroup 15655 2 syms_7; AGroup 15657 2 syms_8; AGroup 15659 2 syms_9;
     AGroup 15661 2 syms_10; AGroup 15669 2 syms_11; SGroup 8129 2 syms_12;
     SGroup 7100 3 syms_13; SGroup 8456 4 syms_14; AGroup 15663 5 syms_15; SGroup 7786 14 syms_17]);
   (91490, 23, [AGroup 5 1 [sym_ppDirective]; AGroup 15647 1 [anon_sym_LBRACK];
     AGroup 15653 1 [anon_sym_POUND]; AGroup 15667 1 [sym_kSpecialize]; AGroup 15671 1 [sym_kIf];
     AGroup 15673 1 [sym_kInherited]; AGroup 15745 1 [anon_sym_LPAREN];
     AGroup 17076 1 [sym_kString]; AGroup 17480 1 [anon_sym_RPAREN];
     SGroup 4095 1 [aux_sym_exprArgs_repeat1]; SGroup 14555 1 [sym_exprArgs]; AGroup 3 2 syms_5;
     AGroup 15651 2 syms_6; AGroup 15655 2 syms_7; AGroup 15657 2 syms_8; AGroup 15659 2 syms_9;
     AGroup 15661 2 syms_10; AGroup 15669 2 syms_11; SGroup 8129 2 syms_12;
     SGroup 7100 3 syms_13; SGroup 8456 4 syms_14; AGroup 15663 5 syms_15; SGroup 7786 14 syms_17]);
   (91590, 23, [AGroup 5 1 [sym_ppDirective]; AGroup 15647 1 [anon_sym_LBRACK];
     AGroup 15653 1 [anon_sym_POUND]; AGroup 15667 1 [sym_kSpecialize]; AGroup 15671 1 [sym_kIf];
     AGroup 15673 1 [sym_kInherited]; AGroup 15745 1 [anon_sym_LPAREN];
     AGroup 17076 1 [sym_kString]; AGroup 17482 1 [anon_sym_RPAREN];
     SGroup 4095 1 [aux_sym_exprArgs_repeat1]; SGroup 14306 1 [sym_exprArgs]; AGroup 3 2 syms_5;
     AGroup 15651 2 syms_6; AGroup 15655 2 syms_7; AGroup 15657 2 syms_8; AGroup 15659 2 syms_9;
     AGroup 15661 2 syms_10; AGroup 15669 2 syms_11; SGroup 8129 2 syms_12;
     SGroup 7100 3 syms_13; SGroup 8456 4 syms_14; AGroup 15663 5 syms_15; SGroup 7786 14 syms_17]);
   (91690, 12, [AGroup 17132 1 [sym_kDispId]; AGroup 17134 1 [sym_kPublic]; AGroup 17136 1 [sym_kExternal];
     AGroup 17138 1 [sym_kMessage]; AGroup 17140 1 [sym_kDeprecated];
     AGroup 17142 1 [sym_kExport]; AGroup 17144 1 [sym_kAlias]; AGroup 17484 1 [anon_sym_RBRACK];
     SGroup 3992 1 [aux_sym__procAttribute_repeat1]; SGroup 13285 2 syms_107; AGroup 3 3 syms_1;
     AGroup 1016 39 syms_33]);
   (91768, 23, [AGroup 5 1 [sym_ppDirective]; AGroup 15011 1 [anon_sym_LBRACK];
     AGroup 15013 1 [anon_sym_LPAREN]; AGroup 15017 1 [anon_sym_POUND];
     AGroup 15029 1 [sym_kSpecialize]; AGroup 15035 1 [sym_kIf]; AGroup 15037 1 [sym_kInherited];
     AGroup 15039 1 [sym_kString]; AGroup 17486 1 [anon_sym_RBRACK];
     SGroup 3920 1 [aux_sym_caseLabel_repeat1]; SGroup 13828 1 [sym_range]; AGroup 3 2 syms_5;
     AGroup 15015 2 syms_6; AGroup 15019 2 syms_7; AGroup 15021 2 syms_8; AGroup 15023 2 syms_9;
     AGroup 15025 2 syms_10; AGroup 15033 2 syms_11; SGroup 8466 2 syms_12;
     SGroup 7201 3 syms_13; SGroup 9456 4 syms_14; AGroup 15027 5 syms_15; SGroup 7990 14 syms_17]);
   (91868, 23, [AGroup 5 1 [sym_ppDirective]; AGroup 15647 1 [anon_sym_LBRACK];
     AGroup 15653 1 [anon_sym_POUND]; AGroup 15667 1 [sym_kSpecialize]; AGroup 15671 1 [sym_kIf];
     AGroup 15673 1 [sym_kInherited]; AGroup 15745 1 [anon_sym_LPAREN];
     AGroup 17076 1 [sym_kString]; AGroup 17488 1 [anon_sym_RPAREN];
     SGroup 4095 1 [aux_sym_exprArgs_repeat1]; SGroup 14595 1 [sym_exprArgs]; AGroup 3 2 syms_5;
     AGroup 15651 2 syms_6; AGroup 15655 2 syms_7; AGroup 15657 2 syms_8; AGroup 15659 2 syms_9;
     AGroup 15661 2 syms_10; AGroup 15669 2 syms_11; SGroup 8129 2 syms_12;
     SGroup 7100 3 syms_13; SGroup 8456 4 syms_14; AGroup 15663 5 syms_15; SGroup 7786 14 syms_17]);
   (91968, 23, [AGroup 5 1 [sym_ppDirective]; AGroup 15647 1 [anon_sym_LBRACK];
     AGroup 15653 1 [anon_sym_POUND]; AGroup 15667 1 [sym_kSpecialize]; AGroup 15671 1 [sym_kIf];
     AGroup 15673 1 [sym_kInherited]; AGroup 15745 1 [anon_sym_LPAREN];
     AGroup 17076 1 [sym_kString]; AGroup 17490 1 [anon_sym_RPAREN];
     SGroup 4095 1 [aux_sym_exprArgs_repeat1]; SGroup 14604 1 [sym_exprArgs]; AGroup 3 2 syms_5;
     AGroup 15651 2 syms_6; AGroup 15655 2 syms_7; AGroup 15657 2 syms_8; AGroup 15659 2 syms_9;
     AGroup 15661 2 syms_10; AGroup 15669 2 syms_11; SGroup 8129 2 syms_12;
     SGroup 7100 3 syms_13; SGroup 8456 4 syms_14; AGroup 15663 5 syms_15; SGroup 7786 14 syms_17]);
   (92068, 22, [AGroup 5 1 [sym_ppDirective]; AGroup 16161 1 [anon_sym_LBRACK];
     AGroup 16163 1 [anon_sym_LPAREN]; AGroup 16167 1 [anon_sym_POUND];
     AGroup 16181 1 [sym_kSpecialize]; AGroup 16185 1 [sym_kIf]; AGroup 16187 1 [sym_kInherited];
     AGroup 17192 1 [sym_kString]; AGroup 17492 1 [anon_sym_SEMI]; AGroup 3 2 syms_5;
     AGroup 15576 2 syms_109; AGroup 16165 2 syms_6; AGroup 16169 2 syms_7;
     AGroup 16171 2 syms_8; AGroup 16173 2 syms_9; AGroup 16175 2 syms_10;
     AGroup 16183 2 syms_11; SGroup 8481 2 syms_12; SGroup 7166 3 syms_13; SGroup 9178 4 syms_14;
     AGroup 16177 5 syms_15; SGroup 8150 14 syms_17]);
   (92166, 22, [AGroup 5 1 [sym_ppDirective]; AGroup 15895 1 [anon_sym_LBRACK];
     AGroup 15897 1 [anon_sym_LPAREN]; AGroup 15901 1 [anon_sym_POUND];
     AGroup 15915 1 [sym_kSpecialize]; AGroup 15919 1 [sym_kIf]; AGroup 15921 1 [sym_kInherited];
     AGroup 17230 1 [sym_kString]; AGroup 17494 1 [anon_sym_SEMI]; AGroup 3 2 syms_5;
     AGroup 15576 2 syms_112; AGroup 15899 2 syms_6; AGroup 15903 2 syms_7;
     AGroup 15905 2 syms_8; AGroup 15907 2 syms_9; AGroup 15909 2 syms_10;
     AGroup 15917 2 syms_11; SGroup 8314 2 syms_12; SGroup 7161 3 syms_13; SGroup 9375 4 syms_14;
     AGroup 15911 5 syms_15; SGroup 8003 14 syms_17]);
   (92264, 23, [AGroup 5 1 [sym_ppDirective]; AGroup 15011 1 [anon_sym_LBRACK];
     AGroup 15013 1 [anon_sym_LPAREN]; AGroup 15017 1 [anon_sym_POUND];
     AGroup 15029 1 [sym_kSpecialize]; AGroup 15035 1 [sym_kIf]; AGroup 15037 1 [sym_kInherited];
     AGroup 15039 1 [sym_kString]; AGroup 17496 1 [anon_sym_RBRACK];
     SGroup 3922 1 [aux_sym_caseLabel_repeat1]; SGroup 13879 1 [sym_range]; AGroup 3 2 syms_5;
     AGroup 15015 2 syms_6; AGroup 15019 2 syms_7; AGroup 15021 2 syms_8; AGroup 15023 2 syms_9;
     AGroup 15025 2 syms_10; AGroup 15033 2 syms_11; SGroup 8466 2 syms_12;
     SGroup 7201 3 syms_13; SGroup 9459 4 syms_14; AGroup 15027 5 syms_15; SGroup 7990 14 syms_17]);
   (92364, 12, [AGroup 17132 1 [sym_kDispId]; AGroup 17134 1 [sym_kPublic]; AGroup 17136 1 [sym_kExternal];
     AGroup 17138 1 [sym_kMessage]; AGroup 17140 1 [sym_kDeprecated];
     AGroup 17142 1 [sym_kExport]; AGroup 17144 1 [sym_kAlias]; AGroup 17498 1 [anon_sym_RBRACK];
     SGroup 3993 1 [aux_sym__procAttribute_repeat1]; SGroup 13309 2 syms_107; AGroup 3 3 syms_1;
     AGroup 1016 39 syms_33]);
   (92442, 23, [AGroup 5 1 [sym_ppDirective]; AGroup 15647 1 [anon_sym_LBRACK];
     AGroup 15653 1 [anon_sym_POUND]; AGroup 15667 1 [sym_kSpecialize]; AGroup 15671 1 [sym_kIf];
     AGroup 15673 1 [sym_kInherited]; AGroup 15745 1 [anon_sym_LPAREN];
     AGroup 17076 1 [sym_kString]; AGroup 17500 1 [anon_sym_RPAREN];
     SGroup 4095 1 [aux_sym_exprArgs_repeat1]; SGroup 14667 1 [sym_exprArgs]; AGroup 3 2 syms_5;
     AGroup 15651 2 syms_6; AGroup 15655 2 syms_7; AGroup 15657 2 syms_8; AGroup 15659 2 syms_9;
     AGroup 15661 2 syms_10; AGroup 15669 2 syms_11; SGroup 8129 2 syms_12;
     SGroup 7100 3 syms_13; SGroup 8456 4 syms_14; AGroup 15663 5 syms_15; SGroup 7786 14 syms_17]);
   (92542, 23, [AGroup 5 1 [sym_ppDirective]; AGroup 15647 1 [anon_sym_LBRACK];
     AGroup 15653 1 [anon_sym_POUND]; AGroup 15667 1 [sym_kSpecialize]; AGroup 15671 1 [sym_kIf];
     AGroup 15673 1 [sym_kInherited]; AGroup 15745 1 [anon_sym_LPAREN];
     AGroup 17076 1 [sym_kString]; AGroup 17502 1 [anon_sym_RPAREN];
     SGroup 4095 1 [aux_sym_exprArgs_repeat1]; SGroup 14682 1 [sym_exprArgs]; AGroup 3 2 syms_5;
     AGroup 15651 2 syms_6; AGroup 15655 2 syms_7; AGroup 15657 2 syms_8; AGroup 15659 2 syms_9;
     AGroup 15661 2 syms_10; AGroup 15669 2 syms_11; SGroup 8129 2 syms_12;
     SGroup 7100 3 syms_13; SGroup 8456 4 syms_14; AGroup 15663 5 syms_15; SGroup 7786 14 syms_17]);
   (92642, 4, [AGroup 5 1 [sym_ppDirective]; AGroup 3 2 syms_5; AGroup 15355 4 syms_25;
     AGroup 15353 46 syms_122]);
   (92704, 23, [AGroup 5 1 [sym_ppDirective]; AGroup 15011 1 [anon_sym_LBRACK];
     AGroup 15013 1 [anon_sym_LPAREN]; AGroup 15017 1 [anon_sym_POUND];
     AGroup 15029 1 [sym_kSpecialize]; AGroup 15035 1 [sym_kIf]; AGroup 15037 1 [sym_kInherited];
     AGroup 15039 1 [sym_kString]; AGroup 17504 1 [anon_sym_RBRACK];
     SGroup 3924 1 [aux_sym_caseLabel_repeat1]; SGroup 13910 1 [sym_range]; AGroup 3 2 syms_5;
     AGroup 15015 2 syms_6; AGroup 15019 2 syms_7; AGroup 15021 2 syms_8; AGroup 15023 2 syms_9;
     AGroup 15025 2 syms_10; AGroup 15033 2 syms_11; SGroup 8466 2 syms_12;
     SGroup 7201 3 syms_13; SGroup 9466 4 syms_14; AGroup 15027 5 syms_15; SGroup 7990 14 syms_17]);
   (92804, 12, [AGroup 17132 1 [sym_kDispId]; AGroup 17134 1 [sym_kPublic]; AGroup 17136 1 [sym_kExternal];
     AGroup 17138 1 [sym_kMessage]; AGroup 17140 1 [sym_kDeprecated];
     AGroup 17142 1 [sym_kExport]; AGroup 17144 1 [sym_kAlias]; AGroup 17506 1 [anon_sym_RBRACK];
     SGroup 3994 1 [aux_sym__procAttribute_repeat1]; SGroup 13330 2 syms_107; AGroup 3 3 syms_1;
     AGroup 1016 39 syms_33]);
   (92882, 23, [AGroup 5 1 [sym_ppDirective]; AGroup 15647 1 [anon_sym_LBRACK];
     AGroup 15653 1 [anon_sym_POUND]; AGroup 15667 1 [sym_kSpecialize]; AGroup 15671 1 [sym_kIf];
     AGroup 15673 1 [sym_kInherited]; AGroup 15745 1 [anon_sym_LPAREN];
     AGroup 17076 1 [sym_kString]; AGroup 17508 1 [anon_sym_RPAREN];
     SGroup 4095 1 [aux_sym_exprArgs_repeat1]; SGroup 14726 1 [sym_exprArgs]; AGroup 3 2 syms_5;
     AGroup 15651 2 syms_6; AGroup 15655 2 syms_7; AGroup 15657 2 syms_8; AGroup 15659 2 syms_9;
     AGroup 15661 2 syms_10; AGroup 15669 2 syms_11; SGroup 8129 2 syms_12;
     SGroup 7100 3 syms_13; SGroup 8456 4 syms_14; AGroup 15663 5 syms_15; SGroup 7786 14 syms_17]);
   (92982, 23, [AGroup 5 1 [sym_ppDirective]; AGroup 15647 1 [anon_sym_LBRACK];
     AGroup 15653 1 [anon_sym_POUND]; AGroup 15667 1 [sym_kSpecialize]; AGroup 15671 1 [sym_kIf];
     AGroup 15673 1 [sym_kInherited]; AGroup 15745 1 [anon_sym_LPAREN];
     AGroup 17076 1 [sym_kString]; AGroup 17510 1 [anon_sym_RPAREN];
     SGroup 4095 1 [aux_sym_exprArgs_repeat1]; SGroup 14732 1 [sym_exprArgs]; AGroup 3 2 syms_5;
     AGroup 15651 2 syms_6; AGroup 15655 2 syms_7; AGroup 15657 2 syms_8; AGroup 15659 2 syms_9;
     AGroup 15661 2 syms_10; AGroup 15669 2 syms_11; SGroup 8129 2 syms_12;
     SGroup 7100 3 syms_13; SGroup 8456 4 syms_14; AGroup 15663 5 syms_15; SGroup 7786 14 syms_17]);
   (93082, 12, [AGroup 17132 1 [sym_kDispId]; AGroup 17134 1 [sym_kPublic]; AGroup 17136 1 [sym_kExternal];
     AGroup 17138 1 [sym_kMessage]; AGroup 17140 1 [sym_kDeprecated];
     AGroup 17142 1 [sym_kExport]; AGroup 17144 1 [sym_kAlias]; AGroup 17512 1 [anon_sym_RBRACK];
     SGroup 3995 1 [aux_sym__procAttribute_repeat1]; SGroup 13346 2 syms_107; AGroup 3 3 syms_1;
     AGroup 1016 39 syms_33]);
   (93160, 23, [AGroup 5 1 [sym_ppDirective]; AGroup 15647 1 [anon_sym_LBRACK];
     AGroup 15653 1 [anon_sym_POUND]; AGroup 15667 1 [sym_kSpecialize]; AGroup 15671 1 [sym_kIf];
     AGroup 15673 1 [sym_kInherited]; AGroup 15745 1 [anon_sym_LPAREN];
     AGroup 17076 1 [sym_kString]; AGroup 17514 1 [anon_sym_RPAREN];
     SGroup 4095 1 [aux_sym_exprArgs_repeat1]; SGroup 14898 1 [sym_exprArgs]; AGroup 3 2 syms_5;
     AGroup 15651 2 syms_6; AGroup 15655 2 syms_7; AGroup 15657 2 syms_8; AGroup 15659 2 syms_9;
     AGroup 15661 2 syms_10; AGroup 15669 2 syms_11; SGroup 8129 2 syms_12;
     SGroup 7100 3 syms_13; SGroup 8456 4 syms_14; AGroup 15663 5 syms_15; SGroup 7786 14 syms_17]);
   (93260, 23, [AGroup 5 1 [sym_ppDirective]; AGroup 15011 1 [anon_sym_LBRACK];
     AGroup 15013 1 [anon_sym_LPAREN]; AGroup 15017 1 [anon_sym_POUND];
     AGroup 15029 1 [sym_kSpecialize]; AGroup 15035 1 [sym_kIf]; AGroup 15037 1 [sym_kInherited];
     AGroup 15039 1 [sym_kString]; AGroup 17516 1 [anon_sym_RBRACK];
     SGroup 3926 1 [aux_sym_caseLabel_repeat1]; SGroup 13952 1 [sym_range]; AGroup 3 2 syms_5;
     AGroup 15015 2 syms_6; AGroup 15019 2 syms_7; AGroup 15021 2 syms_8; AGroup 15023 2 syms_9;
     AGroup 15025 2 syms_10; AGroup 15033 2 syms_11; SGroup 8466 2 syms_12;
     SGroup 7201 3 syms_13; SGroup 9471 4 syms_14; AGroup 15027 5 syms_15; SGroup 7990 14 syms_17]);
   (93360, 12, [AGroup 17132 1 [sym_kDispId]; AGroup 17134 1 [sym_kPublic]; AGroup 17136 1 [sym_kExternal];
     AGroup 17138 1 [sym_kMessage]; AGroup 17140 1 [sym_kDeprecated];
     AGroup 17142 1 [sym_kExport]; AGroup 17144 1 [sym_kAlias]; AGroup 17518 1 [anon_sym_RBRACK];
     SGroup 3996 1 [aux_sym__procAttribute_repeat1]; SGroup 13364 2 syms_107; AGroup 3 3 syms_1;
     AGroup 1016 39 syms_33]);
   (93438, 23, [AGroup 5 1 [sym_ppDirective]; AGroup 15647 1 [anon_sym_LBRACK];
     AGroup 15653 1 [anon_sym_POUND]; AGroup 15667 1 [sym_kSpecialize]; AGroup 15671 1 [sym_kIf];
     AGroup 15673 1 [sym_kInherited]; AGroup 15745 1 [anon_sym_LPAREN];
     AGroup 17076 1 [sym_kString]; AGroup 17520 1 [anon_sym_RPAREN];
     SGroup 4095 1 [aux_sym_exprArgs_repeat1]; SGroup 14767 1 [sym_exprArgs]; AGroup 3 2 syms_5;
     AGroup 15651 2 syms_6; AGroup 15655 2 syms_7; AGroup 15657 2 syms_8; AGroup 15659 2 syms_9;
     AGroup 15661 2 syms_10; AGroup 15669 2 syms_11; SGroup 8129 2 syms_12;
     SGroup 7100 3 syms_13; SGroup 8456 4 syms_14; AGroup 15663 5 syms_15; SGroup 7786 14 syms_17]);
   (93538, 23, [AGroup 5 1 [sym_ppDirective]; AGroup 15647 1 [anon_sym_LBRACK];
     AGroup 15653 1 [anon_sym_POUND]; AGroup 15667 1 [sym_kSpecialize]; AGroup 15671 1 [sym_kIf];
     AGroup 15673 1 [sym_kInherited]; AGroup 15745 1 [anon_sym_LPAREN];
     AGroup 17076 1 [sym_kString]; AGroup 17522 1 [anon_sym_RPAREN];
     SGroup 4095 1 [aux_sym_exprArgs_repeat1]; SGroup 14775 1 [sym_exprArgs]; AGroup 3 2 syms_5;
     AGroup 15651 2 syms_6; AGroup 15655 2 syms_7; AGroup 15657 2 syms_8; AGroup 15659 2 syms_9;
     AGroup 15661 2 syms_10; AGroup 15669 2 syms_11; SGroup 8129 2 syms_12;
     SGroup 7100 3 syms_13; SGroup 8456 4 syms_14; AGroup 15663 5 syms_15; SGroup 7786 14 syms_17]);
   (93638, 12, [AGroup 17132 1 [sym_kDispId]; AGroup 17134 1 [sym_kPublic]; AGroup 17136 1 [sym_kExternal];
     AGroup 17138 1 [sym_kMessage]; AGroup 17140 1 [sym_kDeprecated];
     AGroup 17142 1 [sym_kExport]; AGroup 17144 1 [sym_kAlias]; AGroup 17524 1 [anon_sym_RBRACK];
     SGroup 3997 1 [aux_sym__procAttribute_repeat1]; SGroup 13379 2 syms_107; AGroup 3 3 syms_1;
     AGroup 1016 39 syms_33]);
   (93716, 23, [AGroup 5 1 [sym_ppDirective]; AGroup 15011 1 [anon_sym_LBRACK];
     AGroup 15013 1 [anon_sym_LPAREN]; AGroup 15017 1 [anon_sym_POUND];
     AGroup 15029 1 [sym_kSpecialize]; AGroup 15035 1 [sym_kIf]; AGroup 15037 1 [sym_kInherited];
     AGroup 15039 1 [sym_kString]; AGroup 17526 1 [anon_sym_RBRACK];
     SGroup 3810 1 [aux_sym_caseLabel_repeat1]; SGroup 13037 1 [sym_range]; AGroup 3 2 syms_5;
     AGroup 15015 2 syms_6; AGroup 15019 2 syms_7; AGroup 15021 2 syms_8; AGroup 15023 2 syms_9;
     AGroup 15025 2 syms_10; AGroup 15033 2 syms_11; SGroup 8466 2 syms_12;
     SGroup 7201 3 syms_13; SGroup 9524 4 syms_14; AGroup 15027 5 syms_15; SGroup 7990 14 syms_17]);
   (93816, 12, [AGroup 17132 1 [sym_kDispId]; AGroup 17134 1 [sym_kPublic]; AGroup 17136 1 [sym_kExternal];
     AGroup 17138 1 [sym_kMessage]; AGroup 17140 1 [sym_kDeprecated];
     AGroup 17142 1 [sym_kExport]; AGroup 17144 1 [sym_kAlias]; AGroup 17528 1 [anon_sym_RBRACK];
     SGroup 3998 1 [aux_sym__procAttribute_repeat1]; SGroup 12987 2 syms_107; AGroup 3 3 syms_1;
     AGroup 1016 39 syms_33]);
   (93894, 23, [AGroup 5 1 [sym_ppDirective]; AGroup 15011 1 [anon_sym_LBRACK];
     AGroup 15013 1 [anon_sym_LPAREN]; AGroup 15017 1 [anon_sym_POUND];
     AGroup 15029 1 [sym_kSpecialize]; AGroup 15035 1 [sym_kIf]; AGroup 15037 1 [sym_kInherited];
     AGroup 15039 1 [sym_kString]; AGroup 17530 1 [anon_sym_RBRACK];
     SGroup 3928 1 [aux_sym_caseLabel_repeat1]; SGroup 13986 1 [sym_range]; AGroup 3 2 syms_5;
     AGroup 15015 2 syms_6; AGroup 15019 2 syms_7; AGroup 15021 2 syms_8; AGroup 15023 2 syms_9;
     AGroup 15025 2 syms_10; AGroup 15033 2 syms_11; SGroup 8466 2 syms_12;
     SGroup 7201 3 syms_13; SGroup 9475 4 syms_14; AGroup 15027 5 syms_15; SGroup 7990 14 syms_17]);
   (93994, 12, [AGroup 17132 1 [sym_kDispId]; AGroup 17134 1 [sym_kPublic]; AGroup 17136 1 [sym_kExternal];
     AGroup 17138 1 [sym_kMessage]; AGroup 17140 1 [sym_kDeprecated];
     AGroup 17142 1 [sym_kExport]; AGroup 17144 1 [sym_kAlias]; AGroup 17532 1 [anon_sym_RBRACK];
     SGroup 3999 1 [aux_sym__procAttribute_repeat1]; SGroup 13412 2 syms_107; AGroup 3 3 syms_1;
     AGroup 1016 39 syms_33]);
   (94072, 23, [AGroup 5 1 [sym_ppDirective]; AGroup 15647 1 [anon_sym_LBRACK];
     AGroup 15653 1 [anon_sym_POUND]; AGroup 15667 1 [sym_kSpecialize]; AGroup 15671 1 [sym_kIf];
     AGroup 15673 1 [sym_kInherited]; AGroup 15745 1 [anon_sym_LPAREN];
     AGroup 17076 1 [sym_kString]; AGroup 17534 1 [anon_sym_RPAREN];
     SGroup 4095 1 [aux_sym_exprArgs_repeat1]; SGroup 14815 1 [sym_exprArgs]; AGroup 3 2 syms_5;
     AGroup 15651 2 syms_6; AGroup 15655 2 syms_7; AGroup 15657 2 syms_8; AGroup 15659 2 syms_9;
     AGroup 15661 2 syms_10; AGroup 15669 2 syms_11; SGroup 8129 2 syms_12;
     SGroup 7100 3 syms_13; SGroup 8456 4 syms_14; AGroup 15663 5 syms_15; SGroup 7786 14 syms_17]);
   (94172, 12, [AGroup 17132 1 [sym_kDispId]; AGroup 17134 1 [sym_kPublic]; AGroup 17136 1 [sym_kExternal];
     AGroup 17138 1 [sym_kMessage]; AGroup 17140 1 [sym_kDeprecated];
     AGroup 17142 1 [sym_kExport]; AGroup 17144 1 [sym_kAlias]; AGroup 17536 1 [anon_sym_RBRACK];
     SGroup 4000 1 [aux_sym__procAttribute_repeat1]; SGroup 13424 2 syms_107; AGroup 3 3 syms_1;
     AGroup 1016 39 syms_33]);
   (94250, 21, [AGroup 5 1 [sym_ppDirective]; AGroup 16435 1 [anon_sym_LBRACK];
     AGroup 16441 1 [anon_sym_POUND]; AGroup 16455 1 [sym_kSpecialize]; AGroup 16459 1 [sym_kIf];
     AGroup 16461 1 [sym_kInherited]; AGroup 17538 1 [anon_sym_LPAREN];
     AGroup 17540 1 [sym_kString]; AGroup 3 2 syms_5; AGroup 16439 2 syms_6;
     AGroup 16443 2 syms_7; AGroup 16445 2 syms_8; AGroup 16447 2 syms_9; AGroup 16449 2 syms_10;
     AGroup 16457 2 syms_11; SGroup 8859 2 syms_12; SGroup 7280 3 syms_13;
     SGroup 12812 3 syms_56; SGroup 9552 4 syms_14; AGroup 16451 5 syms_15;
     SGroup 8207 14 syms_17]);
   (94346, 23, [AGroup 5 1 [sym_ppDirective]; AGroup 15647 1 [anon_sym_LBRACK];
     AGroup 15653 1 [anon_sym_POUND]; AGroup 15667 1 [sym_kSpecialize]; AGroup 15671 1 [sym_kIf];
     AGroup 15673 1 [sym_kInherited]; AGroup 15745 1 [anon_sym_LPAREN];
     AGroup 17076 1 [sym_kString]; AGroup 17542 1 [anon_sym_RPAREN];
     SGroup 4095 1 [aux_sym_exprArgs_repeat1]; SGroup 14179 1 [sym_exprArgs]; AGroup 3 2 syms_5;
     AGroup 15651 2 syms_6; AGroup 15655 2 syms_7; AGroup 15657 2 syms_8; AGroup 15659 2 syms_9;
     AGroup 15661 2 syms_10; AGroup 15669 2 syms_11; SGroup 8129 2 syms_12;
     SGroup 7100 3 syms_13; SGroup 8456 4 syms_14; AGroup 15663 5 syms_15; SGroup 7786 14 syms_17]);
   (94446, 12, [AGroup 17132 1 [sym_kDispId]; AGroup 17134 1 [sym_kPublic]; AGroup 17136 1 [sym_kExternal];
     AGroup 17138 1 [sym_kMessage]; AGroup 17140 1 [sym_kDeprecated];
     AGroup 17142 1 [sym_kExport]; AGroup 17144 1 [sym_kAlias]; AGroup 17544 1 [anon_sym_RBRACK];
     SGroup 4001 1 [aux_sym__procAttribute_repeat1]; SGroup 13443 2 syms_107; AGroup 3 3 syms_1;
     AGroup 1016 39 syms_33]);
   (94524, 23, [AGroup 5 1 [sym_ppDirective]; AGroup 15647 1 [anon_sym_LBRACK];
     AGroup 15653 1 [anon_sym_POUND]; AGroup 15667 1 [sym_kSpecialize]; AGroup 15671 1 [sym_kIf];
     AGroup 15673 1 [sym_kInherited]; AGroup 15745 1 [anon_sym_LPAREN];
     AGroup 17076 1 [sym_kString]; AGroup 17546 1 [anon_sym_RPAREN];
     SGroup 4095 1 [aux_sym_exprArgs_repeat1]; SGroup 14820 1 [sym_exprArgs]; AGroup 3 2 syms_5;
     AGroup 15651 2 syms_6; AGroup 15655 2 syms_7; AGroup 15657 2 syms_8; AGroup 15659 2 syms_9;
     AGroup 15661 2 syms_10; AGroup 15669 2 syms_11; SGroup 8129 2 syms_12;
     SGroup 7100 3 syms_13; SGroup 8456 4 syms_14; AGroup 15663 5 syms_15; SGroup 7786 14 syms_17]);
   (94624, 4, [AGroup 5 1 [sym_ppDirective]; AGroup 3 2 syms_5; AGroup 17550 4 syms_25;
     AGroup 17548 46 syms_26]);
   (94686, 12, [AGroup 17132 1 [sym_kDispId]; AGroup 17134 1 [sym_kPublic]; AGroup 17136 1 [sym_kExternal];
     AGroup 17138 1 [sym_kMessage]; AGroup 17140 1 [sym_kDeprecated];
     AGroup 17142 1 [sym_kExport]; AGroup 17144 1 [sym_kAlias]; AGroup 17552 1 [anon_sym_RBRACK];
     SGroup 4002 1 [aux_sym__procAttribute_repeat1]; SGroup 13458 2 syms_107; AGroup 3 3 syms_1;
     AGroup 1016 39 syms_33]);
   (94764, 5, [AGroup 5 1 [sym_ppDirective]; AGroup 3 2 syms_5; AGroup 15492 7 syms_34;
     AGroup 15403 18 syms_36; AGroup 15490 25 syms_104]);
   (94828, 23, [AGroup 5 1 [sym_ppDirective]; AGroup 15011 1 [anon_sym_LBRACK];
     AGroup 15013 1 [anon_sym_LPAREN]; AGroup 15017 1 [anon_sym_POUND];
     AGroup 15029 1 [sym_kSpecialize]; AGroup 15035 1 [sym_kIf]; AGroup 15037 1 [sym_kInherited];
     AGroup 15039 1 [sym_kString]; AGroup 17554 1 [anon_sym_RBRACK];
     SGroup 3930 1 [aux_sym_caseLabel_repeat1]; SGroup 14016 1 [sym_range]; AGroup 3 2 syms_5;
     AGroup 15015 2 syms_6; AGroup 15019 2 syms_7; AGroup 15021 2 syms_8; AGroup 15023 2 syms_9;
     AGroup 15025 2 syms_10; AGroup 15033 2 syms_11; SGroup 8466 2 syms_12;
     SGroup 7201 3 syms_13; SGroup 9478 4 syms_14; AGroup 15027 5 syms_15; SGroup 7990 14 syms_17]);
   (94928, 23, [AGroup 5 1 [sym_ppDirective]; AGroup 15647 1 [anon_sym_LBRACK];
     AGroup 15653 1 [anon_sym_POUND]; AGroup 15667 1 [sym_kSpecialize]; AGroup 15671 1 [sym_kIf];
     AGroup 15673 1 [sym_kInherited]; AGroup 15745 1 [anon_sym_LPAREN];
     AGroup 17076 1 [sym_kString]; AGroup 17556 1 [anon_sym_RPAREN];
     SGroup 4095 1 [aux_sym_exprArgs_repeat1]; SGroup 14419 1 [sym_exprArgs]; AGroup 3 2 syms_5;
     AGroup 15651 2 syms_6; AGroup 15655 2 syms_7; AGroup 15657 2 syms_8; AGroup 15659 2 syms_9;
     AGroup 15661 2 syms_10; AGroup 15669 2 syms_11; SGroup 8129 2 syms_12;
     SGroup 7100 3 syms_13; SGroup 8456 4 syms_14; AGroup 15663 5 syms_15; SGroup 7786 14 syms_17]);
   (95028, 23, [AGroup 5 1 [sym_ppDirective]; AGroup 15647 1 [anon_sym_LBRACK];
     AGroup 15653 1 [anon_sym_POUND]; AGroup 15667 1 [sym_kSpecialize]; AGroup 15671 1 [sym_kIf];
     AGroup 15673 1 [sym_kInherited]; AGroup 15745 1 [anon_sym_LPAREN];
     AGroup 17076 1 [sym_kString]; AGroup 17558 1 [anon_sym_RPAREN];
     SGroup 4095 1 [aux_sym_exprArgs_repeat1]; SGroup 14860 1 [sym_exprArgs]; AGroup 3 2 syms_5;
     AGroup 15651 2 syms_6; AGroup 15655 2 syms_7; AGroup 15657 2 syms_8; AGroup 15659 2 syms_9;
     AGroup 15661 2 syms_10; AGroup 15669 2 syms_11; SGroup 8129 2 syms_12;
     SGroup 7100 3 syms_13; SGroup 8456 4 syms_14; AGroup 15663 5 syms_15; SGroup 7786 14 syms_17]);
   (95128, 23, [AGroup 5 1 [sym_ppDirective]; AGroup 47 1 [anon_sym_LPAREN]; AGroup 51 1 [anon_sym_POUND];
     AGroup 73 1 [sym_kSpecialize]; AGroup 105 1 [sym_kInherited]; AGroup 117 1 [sym_kString];
     AGroup 11060 1 [anon_sym_LBRACK]; AGroup 15829 1 [sym_kIf]; AGroup 17072 1 [sym_kVar];
     SGroup 11638 1 [sym_varAssignDef]; SGroup 13774 1 [sym_assignment]; AGroup 3 2 syms_5;
     AGroup 49 2 syms_6; AGroup 53 2 syms_7; AGroup 55 2 syms_8; AGroup 61 2 syms_9;
     AGroup 63 2 syms_10; AGroup 11080 2 syms_11; SGroup 7888 2 syms_12; SGroup 6994 3 syms_13;
     SGroup 8667 4 syms_14; AGroup 65 5 syms_15; SGroup 7765 14 syms_17]);
   (95228, 23, [AGroup 5 1 [sym_ppDirective]; AGroup 15647 1 [anon_sym_LBRACK];
     AGroup 15653 1 [anon_sym_POUND]; AGroup 15667 1 [sym_kSpecialize]; AGroup 15671 1 [sym_kIf];
     AGroup 15673 1 [sym_kInherited]; AGroup 15745 1 [anon_sym_LPAREN];
     AGroup 17076 1 [sym_kString]; AGroup 17560 1 [anon_sym_RPAREN];
     SGroup 4095 1 [aux_sym_exprArgs_repeat1]; SGroup 14867 1 [sym_exprArgs]; AGroup 3 2 syms_5;
     AGroup 15651 2 syms_6; AGroup 15655 2 syms_7; AGroup 15657 2 syms_8; AGroup 15659 2 syms_9;
     AGroup 15661 2 syms_10; AGroup 15669 2 syms_11; SGroup 8129 2 syms_12;
     SGroup 7100 3 syms_13; SGroup 8456 4 syms_14; AGroup 15663 5 syms_15; SGroup 7786 14 syms_17]);
   (95328, 23, [AGroup 5 1 [sym_ppDirective]; AGroup 15011 1 [anon_sym_LBRACK];
     AGroup 15013 1 [anon_sym_LPAREN]; AGroup 15017 1 [anon_sym_POUND];
     AGroup 15029 1 [sym_kSpecialize]; AGroup 15035 1 [sym_kIf]; AGroup 15037 1 [sym_kInherited];
     AGroup 15039 1 [sym_kString]; AGroup 17562 1 [anon_sym_RBRACK];
     SGroup 3932 1 [aux_sym_caseLabel_repeat1]; SGroup 14062 1 [sym_range]; AGroup 3 2 syms_5;
     AGroup 15015 2 syms_6; AGroup 15019 2 syms_7; AGroup 15021 2 syms_8; AGroup 15023 2 syms_9;
     AGroup 15025 2 syms_10; AGroup 15033 2 syms_11; SGroup 8466 2 syms_12;
     SGroup 7201 3 syms_13; SGroup 9481 4 syms_14; AGroup 15027 5 syms_15; SGroup 7990 14 syms_17]);
   (95428, 23, [AGroup 5 1 [sym_ppDirective]; AGroup 15647 1 [anon_sym_LBRACK];
     AGroup 15653 1 [anon_sym_POUND]; AGroup 15667 1 [sym_kSpecialize]; AGroup 15671 1 [sym_kIf];
     AGroup 15673 1 [sym_kInherited]; AGroup 15745 1 [anon_sym_LPAREN];
     AGroup 17076 1 [sym_kString]; AGroup 17564 1 [anon_sym_RPAREN];
     SGroup 4095 1 [aux_sym_exprArgs_repeat1]; SGroup 14908 1 [sym_exprArgs]; AGroup 3 2 syms_5;
     AGroup 15651 2 syms_6; AGroup 15655 2 syms_7; AGroup 15657 2 syms_8; AGroup 15659 2 syms_9;
     AGroup 15661 2 syms_10; AGroup 15669 2 syms_11; SGroup 8129 2 syms_12;
     SGroup 7100 3 syms_13; SGroup 8456 4 syms_14; AGroup 15663 5 syms_15; SGroup 7786 14 syms_17]);
   (95528, 23, [AGroup 5 1 [sym_ppDirective]; AGroup 15011 1 [anon_sym_LBRACK];
     AGroup 15013 1 [anon_sym_LPAREN]; AGroup 15017 1 [anon_sym_POUND];
     AGroup 15029 1 [sym_kSpecialize]; AGroup 15035 1 [sym_kIf]; AGroup 15037 1 [sym_kInherited];
     AGroup 15039 1 [sym_kString]; AGroup 17566 1 [anon_sym_RBRACK];
     SGroup 4008 1 [aux_sym_declArray_repeat1]; SGroup 13243 1 [sym_range]; AGroup 3 2 syms_5;
     AGroup 15015 2 syms_6; AGroup 15019 2 syms_7; AGroup 15021 2 syms_8; AGroup 15023 2 syms_9;
     AGroup 15025 2 syms_10; AGroup 15033 2 syms_11; SGroup 8466 2 syms_12;
     SGroup 7201 3 syms_13; SGroup 9511 4 syms_14; AGroup 15027 5 syms_15; SGroup 7990 14 syms_17]);
   (95628, 23, [AGroup 5 1 [sym_ppDirective]; AGroup 15647 1 [anon_sym_LBRACK];
     AGroup 15653 1 [anon_sym_POUND]; AGroup 15667 1 [sym_kSpecialize]; AGroup 15671 1 [sym_kIf];
     AGroup 15673 1 [sym_kInherited]; AGroup 15745 1 [anon_sym_LPAREN];
     AGroup 17076 1 [sym_kString]; AGroup 17568 1 [anon_sym_RPAREN];
     SGroup 4095 1 [aux_sym_exprArgs_repeat1]; SGroup 14916 1 [sym_exprArgs]; AGroup 3 2 syms_5;
     AGroup 15651 2 syms_6; AGroup 15655 2 syms_7; AGroup 15657 2 syms_8; AGroup 15659 2 syms_9;
     AGroup 15661 2 syms_10; AGroup 15669 2 syms_11; SGroup 8129 2 syms_12;
     SGroup 7100 3 syms_13; SGroup 8456 4 syms_14; AGroup 15663 5 syms_15; SGroup 7786 14 syms_17]);
   (95728, 23, [AGroup 5 1 [sym_ppDirective]; AGroup 15011 1 [anon_sym_LBRACK];
     AGroup 15013 1 [anon_sym_LPAREN]; AGroup 15017 1 [anon_sym_POUND];
     AGroup 15029 1 [sym_kSpecialize]; AGroup 15035 1 [sym_kIf]; AGroup 15037 1 [sym_kInherited];
     AGroup 15039 1 [sym_kString]; AGroup 17570 1 [anon_sym_RBRACK];
     SGroup 4038 1 [aux_sym_caseLabel_repeat1]; SGroup 13070 1 [sym_range]; AGroup 3 2 syms_5;
     AGroup 15015 2 syms_6; AGroup 15019 2 syms_7; AGroup 15021 2 syms_8; AGroup 15023 2 syms_9;
     AGroup 15025 2 syms_10; AGroup 15033 2 syms_11; SGroup 8466 2 syms_12;
     SGroup 7201 3 syms_13; SGroup 9487 4 syms_14; AGroup 15027 5 syms_15; SGroup 7990 14 syms_17]);
   (95828, 23, [AGroup 5 1 [sym_ppDirective]; AGroup 15647 1 [anon_sym_LBRACK];
     AGroup 15653 1 [anon_sym_POUND]; AGroup 15667 1 [sym_kSpecialize]; AGroup 15671 1 [sym_kIf];
     AGroup 15673 1 [sym_kInherited]; AGroup 15745 1 [anon_sym_LPAREN];
     AGroup 17076 1 [sym_kString]; AGroup 17572 1 [anon_sym_RPAREN];
     SGroup 4095 1 [aux_sym_exprArgs_repeat1]; SGroup 14959 1 [sym_exprArgs]; AGroup 3 2 syms_5;
     AGroup 15651 2 syms_6; AGroup 15655 2 syms_7; AGroup 15657 2 syms_8; AGroup 15659 2 syms_9;
     AGroup 15661 2 syms_10; AGroup 15669 2 syms_11; SGroup 8129 2 syms_12;
     SGroup 7100 3 syms_13; SGroup 8456 4 syms_14; AGroup 15663 5 syms_15; SGroup 7786 14 syms_17]);
   (95928, 23, [AGroup 5 1 [sym_ppDirective]; AGroup 15647 1 [anon_sym_LBRACK];
     AGroup 15653 1 [anon_sym_POUND]; AGroup 15667 1 [sym_kSpecialize]; AGroup 15671 1 [sym_kIf];
     AGroup 15673 1 [sym_kInherited]; AGroup 15745 1 [anon_sym_LPAREN];
     AGroup 17076 1 [sym_kString]; AGroup 17574 1 [anon_sym_RPAREN];
     SGroup 4095 1 [aux_sym_exprArgs_repeat1]; SGroup 14969 1 [sym_exprArgs]; AGroup 3 2 syms_5;
     AGroup 15651 2 syms_6; AGroup 15655 2 syms_7; AGroup 15657 2 syms_8; AGroup 15659 2 syms_9;
     AGroup 15661 2 syms_10; AGroup 15669 2 syms_11; SGroup 8129 2 syms_12;
     SGroup 7100 3 syms_13; SGroup 8456 4 syms_14; AGroup 15663 5 syms_15; SGroup 7786 14 syms_17]);
   (96028, 5, [AGroup 5 1 [sym_ppDirective]; AGroup 3 2 syms_5; AGroup 15473 4 syms_25;
     AGroup 15403 18 syms_36; AGroup 15471 28 syms_103]);
   (96092, 21, [AGroup 5 1 [sym_ppDirective]; AGroup 16021 1 [anon_sym_LBRACK];
     AGroup 16023 1 [anon_sym_LPAREN]; AGroup 16027 1 [anon_sym_POUND];
     AGroup 16041 1 [sym_kSpecialize]; AGroup 16045 1 [sym_kIf]; AGroup 16047 1 [sym_kInherited];
     AGroup 17344 1 [sym_kString]; AGroup 3 2 syms_5; AGroup 16025 2 syms_6;
     AGroup 16029 2 syms_7; AGroup 16031 2 syms_8; AGroup 16033 2 syms_9; AGroup 16035 2 syms_10;
     AGroup 16043 2 syms_11; SGroup 9151 2 syms_12; AGroup 15257 3 syms_117;
     SGroup 7393 3 syms_13; SGroup 9792 4 syms_14; AGroup 16037 5 syms_15; SGroup 8705 14 syms_17]);
   (96188, 23, [AGroup 5 1 [sym_ppDirective]; AGroup 15011 1 [anon_sym_LBRACK];
     AGroup 15013 1 [anon_sym_LPAREN]; AGroup 15017 1 [anon_sym_POUND];
     AGroup 15029 1 [sym_kSpecialize]; AGroup 15035 1 [sym_kIf]; AGroup 15037 1 [sym_kInherited];
     AGroup 15039 1 [sym_kString]; AGroup 17576 1 [anon_sym_RBRACK];
     SGroup 3819 1 [aux_sym_caseLabel_repeat1]; SGroup 13249 1 [sym_range]; AGroup 3 2 syms_5;
     AGroup 15015 2 syms_6; AGroup 15019 2 syms_7; AGroup 15021 2 syms_8; AGroup 15023 2 syms_9;
     AGroup 15025 2 syms_10; AGroup 15033 2 syms_11; SGroup 8466 2 syms_12;
     SGroup 7201 3 syms_13; SGroup 9543 4 syms_14; AGroup 15027 5 syms_15; SGroup 7990 14 syms_17]);
   (96288, 23, [AGroup 5 1 [sym_ppDirective]; AGroup 15011 1 [anon_sym_LBRACK];
     AGroup 15013 1 [anon_sym_LPAREN]; AGroup 15017 1 [anon_sym_POUND];
     AGroup 15029 1 [sym_kSpecialize]; AGroup 15035 1 [sym_kIf]; AGroup 15037 1 [sym_kInherited];
     AGroup 15039 1 [sym_kString]; AGroup 17578 1 [anon_sym_RBRACK];
     SGroup 3936 1 [aux_sym_caseLabel_repeat1]; SGroup 13307 1 [sym_range]; AGroup 3 2 syms_5;
     AGroup 15015 2 syms_6; AGroup 15019 2 syms_7; AGroup 15021 2 syms_8; AGroup 15023 2 syms_9;
     AGroup 15025 2 syms_10; AGroup 15033 2 syms_11; SGroup 8466 2 syms_12;
     SGroup 7201 3 syms_13; SGroup 9499 4 syms_14; AGroup 15027 5 syms_15; SGroup 7990 14 syms_17]);
   (96388, 23, [AGroup 5 1 [sym_ppDirective]; AGroup 15647 1 [anon_sym_LBRACK];
     AGroup 15653 1 [anon_sym_POUND]; AGroup 15667 1 [sym_kSpecialize]; AGroup 15671 1 [sym_kIf];
     AGroup 15673 1 [sym_kInherited]; AGroup 15745 1 [anon_sym_LPAREN];
     AGroup 17076 1 [sym_kString]; AGroup 17580 1 [anon_sym_RPAREN];
     SGroup 4095 1 [aux_sym_exprArgs_repeat1]; SGroup 15008 1 [sym_exprArgs]; AGroup 3 2 syms_5;
     AGroup 15651 2 syms_6; AGroup 15655 2 syms_7; AGroup 15657 2 syms_8; AGroup 15659 2 syms_9;
     AGroup 15661 2 syms_10; AGroup 15669 2 syms_11; SGroup 8129 2 syms_12;
     SGroup 7100 3 syms_13; SGroup 8456 4 syms_14; AGroup 15663 5 syms_15; SGroup 7786 14 syms_17]);
   (96488, 23, [AGroup 5 1 [sym_ppDirective]; AGroup 15647 1 [anon_sym_LBRACK];
     AGroup 15653 1 [anon_sym_POUND]; AGroup 15667 1 [sym_kSpecialize]; AGroup 15671 1 [sym_kIf];
     AGroup 15673 1 [sym_kInherited]; AGroup 15745 1 [anon_sym_LPAREN];
     AGroup 17076 1 [sym_kString]; AGroup 17582 1 [anon_sym_RPAREN];
     SGroup 4095 1 [aux_sym_exprArgs_repeat1]; SGroup 15018 1 [sym_exprArgs]; AGroup 3 2 syms_5;
     AGroup 15651 2 syms_6; AGroup 15655 2 syms_7; AGroup 15657 2 syms_8; AGroup 15659 2 syms_9;
     AGroup 15661 2 syms_10; AGroup 15669 2 syms_11; SGroup 8129 2 syms_12;
     SGroup 7100 3 syms_13; SGroup 8456 4 syms_14; AGroup 15663 5 syms_15; SGroup 7786 14 syms_17]);
   (96588, 5, [AGroup 5 1 [sym_ppDirective]; AGroup 3 2 syms_5; AGroup 15401 7 syms_34;
     AGroup 15403 18 syms_36; AGroup 15399 25 syms_113]);
   (96652, 23, [AGroup 5 1 [sym_ppDirective]; AGroup 15011 1 [anon_sym_LBRACK];
     AGroup 15013 1 [anon_sym_LPAREN]; AGroup 15017 1 [anon_sym_POUND];
     AGroup 15029 1 [sym_kSpecialize]; AGroup 15035 1 [sym_kIf]; AGroup 15037 1 [sym_kInherited];
     AGroup 15039 1 [sym_kString]; AGroup 17584 1 [anon_sym_RBRACK];
     SGroup 3938 1 [aux_sym_caseLabel_repeat1]; SGroup 13918 1 [sym_range]; AGroup 3 2 syms_5;
     AGroup 15015 2 syms_6; AGroup 15019 2 syms_7; AGroup 15021 2 syms_8; AGroup 15023 2 syms_9;
     AGroup 15025 2 syms_10; AGroup 15033 2 syms_11; SGroup 8466 2 syms_12;
     SGroup 7201 3 syms_13; SGroup 9513 4 syms_14; AGroup 15027 5 syms_15; SGroup 7990 14 syms_17]);
   (96752, 23, [AGroup 5 1 [sym_ppDirective]; AGroup 15647 1 [anon_sym_LBRACK];
     AGroup 15653 1 [anon_sym_POUND]; AGroup 15667 1 [sym_kSpecialize]; AGroup 15671 1 [sym_kIf];
     AGroup 15673 1 [sym_kInherited]; AGroup 15745 1 [anon_sym_LPAREN];
     AGroup 17076 1 [sym_kString]; AGroup 17586 1 [anon_sym_RPAREN];
     SGroup 4095 1 [aux_sym_exprArgs_repeat1]; SGroup 15059 1 [sym_exprArgs]; AGroup 3 2 syms_5;
     AGroup 15651 2 syms_6; AGroup 15655 2 syms_7; AGroup 15657 2 syms_8; AGroup 15659 2 syms_9;
     AGroup 15661 2 syms_10; AGroup 15669 2 syms_11; SGroup 8129 2 syms_12;
     SGroup 7100 3 syms_13; SGroup 8456 4 syms_14; AGroup 15663 5 syms_15; SGroup 7786 14 syms_17]);
   (96852, 5, [AGroup 5 1 [sym_ppDirective]; AGroup 3 2 syms_5; AGroup 15504 4 syms_25;
     AGroup 15403 18 syms_36; AGroup 15502 28 syms_103]);
   (96916, 23, [AGroup 5 1 [sym_ppDirective]; AGroup 15647 1 [anon_sym_LBRACK];
     AGroup 15653 1 [anon_sym_POUND]; AGroup 15667 1 [sym_kSpecialize]; AGroup 15671 1 [sym_kIf];
     AGroup 15673 1 [sym_kInherited]; AGroup 15745 1 [anon_sym_LPAREN];
     AGroup 17076 1 [sym_kString]; AGroup 17588 1 [anon_sym_RPAREN];
     SGroup 4095 1 [aux_sym_exprArgs_repeat1]; SGroup 15068 1 [sym_exprArgs]; AGroup 3 2 syms_5;
     AGroup 15651 2 syms_6; AGroup 15655 2 syms_7; AGroup 15657 2 syms_8; AGroup 15659 2 syms_9;
     AGroup 15661 2 syms_10; AGroup 15669 2 syms_11; SGroup 8129 2 syms_12;
     SGroup 7100 3 syms_13; SGroup 8456 4 syms_14; AGroup 15663 5 syms_15; SGroup 7786 14 syms_17]);
   (97016, 4, [AGroup 5 1 [sym_ppDirective]; AGroup 3 2 syms_5; AGroup 17592 4 syms_25;
     AGroup 17590 46 syms_26])
  ].

(** States 3759 to 3858. *)
Definition small_runs_3759 : list small_run :=
  [
   (97078, 23, [AGroup 5 1 [sym_ppDirective]; AGroup 15011 1 [anon_sym_LBRACK];
     AGroup 15013 1 [anon_sym_LPAREN]; AGroup 15017 1 [anon_sym_POUND];
     AGroup 15029 1 [sym_kSpecialize]; AGroup 15035 1 [sym_kIf]; AGroup 15037 1 [sym_kInherited];
     AGroup 15039 1 [sym_kString]; AGroup 17594 1 [anon_sym_RBRACK];
     SGroup 3940 1 [aux_sym_caseLabel_repeat1]; SGroup 13019 1 [sym_range]; AGroup 3 2 syms_5;
     AGroup 15015 2 syms_6; AGroup 15019 2 syms_7; AGroup 15021 2 syms_8; AGroup 15023 2 syms_9;
     AGroup 15025 2 syms_10; AGroup 15033 2 syms_11; SGroup 8466 2 syms_12;
     SGroup 7201 3 syms_13; SGroup 9537 4 syms_14; AGroup 15027 5 syms_15; SGroup 7990 14 syms_17]);
   (97178, 23, [AGroup 5 1 [sym_ppDirective]; AGroup 15647 1 [anon_sym_LBRACK];
     AGroup 15653 1 [anon_sym_POUND]; AGroup 15667 1 [sym_kSpecialize]; AGroup 15671 1 [sym_kIf];
     AGroup 15673 1 [sym_kInherited]; AGroup 15745 1 [anon_sym_LPAREN];
     AGroup 17076 1 [sym_kString]; AGroup 17596 1 [anon_sym_RPAREN];
     SGroup 4095 1 [aux_sym_exprArgs_repeat1]; SGroup 15124 1 [sym_exprArgs]; AGroup 3 2 syms_5;
     AGroup 15651 2 syms_6; AGroup 15655 2 syms_7; AGroup 15657 2 syms_8; AGroup 15659 2 syms_9;
     AGroup 15661 2 syms_10; AGroup 15669 2 syms_11; SGroup 8129 2 syms_12;
     SGroup 7100 3 syms_13; SGroup 8456 4 syms_14; AGroup 15663 5 syms_15; SGroup 7786 14 syms_17]);
   (97278, 23, [AGroup 5 1 [sym_ppDirective]; AGroup 15647 1 [anon_sym_LBRACK];
     AGroup 15653 1 [anon_sym_POUND]; AGroup 15667 1 [sym_kSpecialize]; AGroup 15671 1 [sym_kIf];
     AGroup 15673 1 [sym_kInherited]; AGroup 15745 1 [anon_sym_LPAREN];
     AGroup 17076 1 [sym_kString]; AGroup 17598 1 [anon_sym_RPAREN];
     SGroup 4095 1 [aux_sym_exprArgs_repeat1]; SGroup 15129 1 [sym_exprArgs]; AGroup 3 2 syms_5;
     AGroup 15651 2 syms_6; AGroup 15655 2 syms_7; AGroup 15657 2 syms_8; AGroup 15659 2 syms_9;
     AGroup 15661 2 syms_10; AGroup 15669 2 syms_11; SGroup 8129 2 syms_12;
     SGroup 7100 3 syms_13; SGroup 8456 4 syms_14; AGroup 15663 5 syms_15; SGroup 7786 14 syms_17]);
   (97378, 21, [AGroup 5 1 [sym_ppDirective]; AGroup 16469 1 [anon_sym_LBRACK];
     AGroup 16475 1 [anon_sym_POUND]; AGroup 16489 1 [sym_kSpecialize]; AGroup 16493 1 [sym_kIf];
     AGroup 16495 1 [sym_kInherited]; AGroup 17600 1 [anon_sym_LPAREN];
     AGroup 17602 1 [sym_kString]; AGroup 3 2 syms_5; AGroup 16473 2 syms_6;
     AGroup 16477 2 syms_7; AGroup 16479 2 syms_8; AGroup 16481 2 syms_9; AGroup 16483 2 syms_10;
     AGroup 16491 2 syms_11; SGroup 8445 2 syms_12; SGroup 7193 3 syms_13;
     SGroup 12062 3 syms_56; SGroup 9223 4 syms_14; AGroup 16485 5 syms_15;
     SGroup 7957 14 syms_17]);
   (97474, 23, [AGroup 5 1 [sym_ppDirective]; AGroup 15647 1 [anon_sym_LBRACK];
     AGroup 15653 1 [anon_sym_POUND]; AGroup 15667 1 [sym_kSpecialize]; AGroup 15671 1 [sym_kIf];
     AGroup 15673 1 [sym_kInherited]; AGroup 15745 1 [anon_sym_LPAREN];
     AGroup 17076 1 [sym_kString]; AGroup 17604 1 [anon_sym_RPAREN];
     SGroup 4095 1 [aux_sym_exprArgs_repeat1]; SGroup 15082 1 [sym_exprArgs]; AGroup 3 2 syms_5;
     AGroup 15651 2 syms_6; AGroup 15655 2 syms_7; AGroup 15657 2 syms_8; AGroup 15659 2 syms_9;
     AGroup 15661 2 syms_10; AGroup 15669 2 syms_11; SGroup 8129 2 syms_12;
     SGroup 7100 3 syms_13; SGroup 8456 4 syms_14; AGroup 15663 5 syms_15; SGroup 7786 14 syms_17]);
   (97574, 23, [AGroup 5 1 [sym_ppDirective]; AGroup 15011 1 [anon_sym_LBRACK];
     AGroup 15013 1 [anon_sym_LPAREN]; AGroup 15017 1 [anon_sym_POUND];
     AGroup 15029 1 [sym_kSpecialize]; AGroup 15035 1 [sym_kIf]; AGroup 15037 1 [sym_kInherited];
     AGroup 15039 1 [sym_kString]; AGroup 17606 1 [anon_sym_RBRACK];
     SGroup 3942 1 [aux_sym_caseLabel_repeat1]; SGroup 13169 1 [sym_range]; AGroup 3 2 syms_5;
     AGroup 15015 2 syms_6; AGroup 15019 2 syms_7; AGroup 15021 2 syms_8; AGroup 15023 2 syms_9;
     AGroup 15025 2 syms_10; AGroup 15033 2 syms_11; SGroup 8466 2 syms_12;
     SGroup 7201 3 syms_13; SGroup 9541 4 syms_14; AGroup 15027 5 syms_15; SGroup 7990 14 syms_17]);
   (97674, 23, [AGroup 5 1 [sym_ppDirective]; AGroup 15647 1 [anon_sym_LBRACK];
     AGroup 15653 1 [anon_sym_POUND]; AGroup 15667 1 [sym_kSpecialize]; AGroup 15671 1 [sym_kIf];
     AGroup 15673 1 [sym_kInherited]; AGroup 15745 1 [anon_sym_LPAREN];
     AGroup 17076 1 [sym_kString]; AGroup 17608 1 [anon_sym_RPAREN];
     SGroup 4095 1 [aux_sym_exprArgs_repeat1]; SGroup 15172 1 [sym_exprArgs]; AGroup 3 2 syms_5;
     AGroup 15651 2 syms_6; AGroup 15655 2 syms_7; AGroup 15657 2 syms_8; AGroup 15659 2 syms_9;
     AGroup 15661 2 syms_10; AGroup 15669 2 syms_11; SGroup 8129 2 syms_12;
     SGroup 7100 3 syms_13; SGroup 8456 4 syms_14; AGroup 15663 5 syms_15; SGroup 7786 14 syms_17]);
   (97774, 5, [AGroup 5 1 [sym_ppDirective]; AGroup 3 2 syms_5; AGroup 15484 4 syms_25;
     AGroup 15403 18 syms_36; AGroup 15482 28 syms_103]);
   (97838, 23, [AGroup 5 1 [sym_ppDirective]; AGroup 15647 1 [anon_sym_LBRACK];
     AGroup 15653 1 [anon_sym_POUND]; AGroup 15667 1 [sym_kSpecialize]; AGroup 15671 1 [sym_kIf];
     AGroup 15673 1 [sym_kInherited]; AGroup 15745 1 [anon_sym_LPAREN];
     AGroup 17076 1 [sym_kString]; AGroup 17610 1 [anon_sym_RPAREN];
     SGroup 4095 1 [aux_sym_exprArgs_repeat1]; SGroup 15182 1 [sym_exprArgs]; AGroup 3 2 syms_5;
     AGroup 15651 2 syms_6; AGroup 15655 2 syms_7; AGroup 15657 2 syms_8; AGroup 15659 2 syms_9;
     AGroup 15661 2 syms_10; AGroup 15669 2 syms_11; SGroup 8129 2 syms_12;
     SGroup 7100 3 syms_13; SGroup 8456 4 syms_14; AGroup 15663 5 syms_15; SGroup 7786 14 syms_17]);
   (97938, 21, [AGroup 5 1 [sym_ppDirective]; AGroup 16535 1 [anon_sym_LBRACK];
     AGroup 16537 1 [anon_sym_LPAREN]; AGroup 16541 1 [anon_sym_POUND];
     AGroup 16555 1 [sym_kSpecialize]; AGroup 16559 1 [sym_kIf]; AGroup 16561 1 [sym_kInherited];
     AGroup 17104 1 [sym_kString]; AGroup 3 2 syms_5; AGroup 16539 2 syms_6;
     AGroup 16543 2 syms_7; AGroup 16545 2 syms_8; AGroup 16547 2 syms_9; AGroup 16549 2 syms_10;
     AGroup 16557 2 syms_11; SGroup 8601 2 syms_12; AGroup 14747 3 syms_105;
     SGroup 7304 3 syms_13; SGroup 9517 4 syms_14; AGroup 16551 5 syms_15; SGroup 8287 14 syms_17]);
   (98034, 23, [AGroup 5 1 [sym_ppDirective]; AGroup 15011 1 [anon_sym_LBRACK];
     AGroup 15013 1 [anon_sym_LPAREN]; AGroup 15017 1 [anon_sym_POUND];
     AGroup 15029 1 [sym_kSpecialize]; AGroup 15035 1 [sym_kIf]; AGroup 15037 1 [sym_kInherited];
     AGroup 15039 1 [sym_kString]; AGroup 17612 1 [anon_sym_RBRACK];
     SGroup 3944 1 [aux_sym_caseLabel_repeat1]; SGroup 13351 1 [sym_range]; AGroup 3 2 syms_5;
     AGroup 15015 2 syms_6; AGroup 15019 2 syms_7; AGroup 15021 2 syms_8; AGroup 15023 2 syms_9;
     AGroup 15025 2 syms_10; AGroup 15033 2 syms_11; SGroup 8466 2 syms_12;
     SGroup 7201 3 syms_13; SGroup 9549 4 syms_14; AGroup 15027 5 syms_15; SGroup 7990 14 syms_17]);
   (98134, 23, [AGroup 5 1 [sym_ppDirective]; AGroup 47 1 [anon_sym_LPAREN]; AGroup 51 1 [anon_sym_POUND];
     AGroup 73 1 [sym_kSpecialize]; AGroup 105 1 [sym_kInherited]; AGroup 117 1 [sym_kString];
     AGroup 11060 1 [anon_sym_LBRACK]; AGroup 15829 1 [sym_kIf]; AGroup 17072 1 [sym_kVar];
     SGroup 11619 1 [sym_varAssignDef]; SGroup 13680 1 [sym_assignment]; AGroup 3 2 syms_5;
     AGroup 49 2 syms_6; AGroup 53 2 syms_7; AGroup 55 2 syms_8; AGroup 61 2 syms_9;
     AGroup 63 2 syms_10; AGroup 11080 2 syms_11; SGroup 7888 2 syms_12; SGroup 6994 3 syms_13;
     SGroup 8939 4 syms_14; AGroup 65 5 syms_15; SGroup 7765 14 syms_17]);
   (98234, 23, [AGroup 5 1 [sym_ppDirective]; AGroup 47 1 [anon_sym_LPAREN]; AGroup 51 1 [anon_sym_POUND];
     AGroup 73 1 [sym_kSpecialize]; AGroup 105 1 [sym_kInherited]; AGroup 117 1 [sym_kString];
     AGroup 11060 1 [anon_sym_LBRACK]; AGroup 15829 1 [sym_kIf]; AGroup 17072 1 [sym_kVar];
     SGroup 11625 1 [sym_varAssignDef]; SGroup 13733 1 [sym_assignment]; AGroup 3 2 syms_5;
     AGroup 49 2 syms_6; AGroup 53 2 syms_7; AGroup 55 2 syms_8; AGroup 61 2 syms_9;
     AGroup 63 2 syms_10; AGroup 11080 2 syms_11; SGroup 7888 2 syms_12; SGroup 6994 3 syms_13;
     SGroup 8947 4 syms_14; AGroup 65 5 syms_15; SGroup 7765 14 syms_17]);
   (98334, 23, [AGroup 5 1 [sym_ppDirective]; AGroup 47 1 [anon_sym_LPAREN]; AGroup 51 1 [anon_sym_POUND];
     AGroup 73 1 [sym_kSpecialize]; AGroup 105 1 [sym_kInherited]; AGroup 117 1 [sym_kString];
     AGroup 11060 1 [anon_sym_LBRACK]; AGroup 15829 1 [sym_kIf]; AGroup 17072 1 [sym_kVar];
     SGroup 11631 1 [sym_varAssignDef]; SGroup 13765 1 [sym_assignment]; AGroup 3 2 syms_5;
     AGroup 49 2 syms_6; AGroup 53 2 syms_7; AGroup 55 2 syms_8; AGroup 61 2 syms_9;
     AGroup 63 2 syms_10; AGroup 11080 2 syms_11; SGroup 7888 2 syms_12; SGroup 6994 3 syms_13;
     SGroup 8954 4 syms_14; AGroup 65 5 syms_15; SGroup 7765 14 syms_17]);
   (98434, 23, [AGroup 5 1 [sym_ppDirective]; AGroup 47 1 [anon_sym_LPAREN]; AGroup 51 1 [anon_sym_POUND];
     AGroup 73 1 [sym_kSpecialize]; AGroup 105 1 [sym_kInherited]; AGroup 117 1 [sym_kString];
     AGroup 11060 1 [anon_sym_LBRACK]; AGroup 15829 1 [sym_kIf]; AGroup 17072 1 [sym_kVar];
     SGroup 11632 1 [sym_varAssignDef]; SGroup 13793 1 [sym_assignment]; AGroup 3 2 syms_5;
     AGroup 49 2 syms_6; AGroup 53 2 syms_7; AGroup 55 2 syms_8; AGroup 61 2 syms_9;
     AGroup 63 2 syms_10; AGroup 11080 2 syms_11; SGroup 7888 2 syms_12; SGroup 6994 3 syms_13;
     SGroup 8955 4 syms_14; AGroup 65 5 syms_15; SGroup 7765 14 syms_17]);
   (98534, 23, [AGroup 5 1 [sym_ppDirective]; AGroup 47 1 [anon_sym_LPAREN]; AGroup 51 1 [anon_sym_POUND];
     AGroup 73 1 [sym_kSpecialize]; AGroup 105 1 [sym_kInherited]; AGroup 117 1 [sym_kString];
     AGroup 11060 1 [anon_sym_LBRACK]; AGroup 15829 1 [sym_kIf]; AGroup 17072 1 [sym_kVar];
     SGroup 11633 1 [sym_varAssignDef]; SGroup 13820 1 [sym_assignment]; AGroup 3 2 syms_5;
     AGroup 49 2 syms_6; AGroup 53 2 syms_7; AGroup 55 2 syms_8; AGroup 61 2 syms_9;
     AGroup 63 2 syms_10; AGroup 11080 2 syms_11; SGroup 7888 2 syms_12; SGroup 6994 3 syms_13;
     SGroup 8957 4 syms_14; AGroup 65 5 syms_15; SGroup 7765 14 syms_17]);
   (98634, 23, [AGroup 5 1 [sym_ppDirective]; AGroup 47 1 [anon_sym_LPAREN]; AGroup 51 1 [anon_sym_POUND];
     AGroup 73 1 [sym_kSpecialize]; AGroup 105 1 [sym_kInherited]; AGroup 117 1 [sym_kString];
     AGroup 11060 1 [anon_sym_LBRACK]; AGroup 15829 1 [sym_kIf]; AGroup 17072 1 [sym_kVar];
     SGroup 11634 1 [sym_varAssignDef]; SGroup 13846 1 [sym_assignment]; AGroup 3 2 syms_5;
     AGroup 49 2 syms_6; AGroup 53 2 syms_7; AGroup 55 2 syms_8; AGroup 61 2 syms_9;
     AGroup 63 2 syms_10; AGroup 11080 2 syms_11; SGroup 7888 2 syms_12; SGroup 6994 3 syms_13;
     SGroup 8958 4 syms_14; AGroup 65 5 syms_15; SGroup 7765 14 syms_17]);
   (98734, 23, [AGroup 5 1 [sym_ppDirective]; AGroup 47 1 [anon_sym_LPAREN]; AGroup 51 1 [anon_sym_POUND];
     AGroup 73 1 [sym_kSpecialize]; AGroup 105 1 [sym_kInherited]; AGroup 117 1 [sym_kString];
     AGroup 11060 1 [anon_sym_LBRACK]; AGroup 15829 1 [sym_kIf]; AGroup 17072 1 [sym_kVar];
     SGroup 11635 1 [sym_varAssignDef]; SGroup 13870 1 [sym_assignment]; AGroup 3 2 syms_5;
     AGroup 49 2 syms_6; AGroup 53 2 syms_7; AGroup 55 2 syms_8; AGroup 61 2 syms_9;
     AGroup 63 2 syms_10; AGroup 11080 2 syms_11; SGroup 7888 2 syms_12; SGroup 6994 3 syms_13;
     SGroup 8960 4 syms_14; AGroup 65 5 syms_15; SGroup 7765 14 syms_17]);
   (98834, 23, [AGroup 5 1 [sym_ppDirective]; AGroup 47 1 [anon_sym_LPAREN]; AGroup 51 1 [anon_sym_POUND];
     AGroup 73 1 [sym_kSpecialize]; AGroup 105 1 [sym_kInherited]; AGroup 117 1 [sym_kString];
     AGroup 11060 1 [anon_sym_LBRACK]; AGroup 15829 1 [sym_kIf]; AGroup 17072 1 [sym_kVar];
     SGroup 11639 1 [sym_varAssignDef]; SGroup 13880 1 [sym_assignment]; AGroup 3 2 syms_5;
     AGroup 49 2 syms_6; AGroup 53 2 syms_7; AGroup 55 2 syms_8; AGroup 61 2 syms_9;
     AGroup 63 2 syms_10; AGroup 11080 2 syms_11; SGroup 7888 2 syms_12; SGroup 6994 3 syms_13;
     SGroup 8962 4 syms_14; AGroup 65 5 syms_15; SGroup 7765 14 syms_17]);
   (98934, 23, [AGroup 5 1 [sym_ppDirective]; AGroup 47 1 [anon_sym_LPAREN]; AGroup 51 1 [anon_sym_POUND];
     AGroup 73 1 [sym_kSpecialize]; AGroup 105 1 [sym_kInherited]; AGroup 117 1 [sym_kString];
     AGroup 11060 1 [anon_sym_LBRACK]; AGroup 15829 1 [sym_kIf]; AGroup 17072 1 [sym_kVar];
     SGroup 11640 1 [sym_varAssignDef]; SGroup 13885 1 [sym_assignment]; AGroup 3 2 syms_5;
     AGroup 49 2 syms_6; AGroup 53 2 syms_7; AGroup 55 2 syms_8; AGroup 61 2 syms_9;
     AGroup 63 2 syms_10; AGroup 11080 2 syms_11; SGroup 7888 2 syms_12; SGroup 6994 3 syms_13;
     SGroup 8963 4 syms_14; AGroup 65 5 syms_15; SGroup 7765 14 syms_17]);
   (99034, 23, [AGroup 5 1 [sym_ppDirective]; AGroup 47 1 [anon_sym_LPAREN]; AGroup 51 1 [anon_sym_POUND];
     AGroup 73 1 [sym_kSpecialize]; AGroup 105 1 [sym_kInherited]; AGroup 117 1 [sym_kString];
     AGroup 11060 1 [anon_sym_LBRACK]; AGroup 15829 1 [sym_kIf]; AGroup 17072 1 [sym_kVar];
     SGroup 11641 1 [sym_varAssignDef]; SGroup 13889 1 [sym_assignment]; AGroup 3 2 syms_5;
     AGroup 49 2 syms_6; AGroup 53 2 syms_7; AGroup 55 2 syms_8; AGroup 61 2 syms_9;
     AGroup 63 2 syms_10; AGroup 11080 2 syms_11; SGroup 7888 2 syms_12; SGroup 6994 3 syms_13;
     SGroup 8964 4 syms_14; AGroup 65 5 syms_15; SGroup 7765 14 syms_17]);
   (99134, 23, [AGroup 5 1 [sym_ppDirective]; AGroup 47 1 [anon_sym_LPAREN]; AGroup 51 1 [anon_sym_POUND];
     AGroup 73 1 [sym_kSpecialize]; AGroup 105 1 [sym_kInherited]; AGroup 117 1 [sym_kString];
     AGroup 11060 1 [anon_sym_LBRACK]; AGroup 15829 1 [sym_kIf]; AGroup 17072 1 [sym_kVar];
     SGroup 11642 1 [sym_varAssignDef]; SGroup 13894 1 [sym_assignment]; AGroup 3 2 syms_5;
     AGroup 49 2 syms_6; AGroup 53 2 syms_7; AGroup 55 2 syms_8; AGroup 61 2 syms_9;
     AGroup 63 2 syms_10; AGroup 11080 2 syms_11; SGroup 7888 2 syms_12; SGroup 6994 3 syms_13;
     SGroup 8965 4 syms_14; AGroup 65 5 syms_15; SGroup 7765 14 syms_17]);
   (99234, 23, [AGroup 5 1 [sym_ppDirective]; AGroup 47 1 [anon_sym_LPAREN]; AGroup 51 1 [anon_sym_POUND];
     AGroup 73 1 [sym_kSpecialize]; AGroup 105 1 [sym_kInherited]; AGroup 117 1 [sym_kString];
     AGroup 11060 1 [anon_sym_LBRACK]; AGroup 15829 1 [sym_kIf]; AGroup 17072 1 [sym_kVar];
     SGroup 11643 1 [sym_varAssignDef]; SGroup 13899 1 [sym_assignment]; AGroup 3 2 syms_5;
     AGroup 49 2 syms_6; AGroup 53 2 syms_7; AGroup 55 2 syms_8; AGroup 61 2 syms_9;
     AGroup 63 2 syms_10; AGroup 11080 2 syms_11; SGroup 7888 2 syms_12; SGroup 6994 3 syms_13;
     SGroup 8966 4 syms_14; AGroup 65 5 syms_15; SGroup 7765 14 syms_17]);
   (99334, 23, [AGroup 5 1 [sym_ppDirective]; AGroup 47 1 [anon_sym_LPAREN]; AGroup 51 1 [anon_sym_POUND];
     AGroup 73 1 [sym_kSpecialize]; AGroup 105 1 [sym_kInherited]; AGroup 117 1 [sym_kString];
     AGroup 11060 1 [anon_sym_LBRACK]; AGroup 15829 1 [sym_kIf]; AGroup 17072 1 [sym_kVar];
     SGroup 11644 1 [sym_varAssignDef]; SGroup 13905 1 [sym_assignment]; AGroup 3 2 syms_5;
     AGroup 49 2 syms_6; AGroup 53 2 syms_7; AGroup 55 2 syms_8; AGroup 61 2 syms_9;
     AGroup 63 2 syms_10; AGroup 11080 2 syms_11; SGroup 7888 2 syms_12; SGroup 6994 3 syms_13;
     SGroup 8967 4 syms_14; AGroup 65 5 syms_15; SGroup 7765 14 syms_17]);
   (99434, 23, [AGroup 5 1 [sym_ppDirective]; AGroup 47 1 [anon_sym_LPAREN]; AGroup 51 1 [anon_sym_POUND];
     AGroup 73 1 [sym_kSpecialize]; AGroup 105 1 [sym_kInherited]; AGroup 117 1 [sym_kString];
     AGroup 11060 1 [anon_sym_LBRACK]; AGroup 15829 1 [sym_kIf]; AGroup 17072 1 [sym_kVar];
     SGroup 11646 1 [sym_varAssignDef]; SGroup 13911 1 [sym_assignment]; AGroup 3 2 syms_5;
     AGroup 49 2 syms_6; AGroup 53 2 syms_7; AGroup 55 2 syms_8; AGroup 61 2 syms_9;
     AGroup 63 2 syms_10; AGroup 11080 2 syms_11; SGroup 7888 2 syms_12; SGroup 6994 3 syms_13;
     SGroup 8968 4 syms_14; AGroup 65 5 syms_15; SGroup 7765 14 syms_17]);
   (99534, 23, [AGroup 5 1 [sym_ppDirective]; AGroup 47 1 [anon_sym_LPAREN]; AGroup 51 1 [anon_sym_POUND];
     AGroup 73 1 [sym_kSpecialize]; AGroup 105 1 [sym_kInherited]; AGroup 117 1 [sym_kString];
     AGroup 11060 1 [anon_sym_LBRACK]; AGroup 15829 1 [sym_kIf]; AGroup 17072 1 [sym_kVar];
     SGroup 11648 1 [sym_varAssignDef]; SGroup 13916 1 [sym_assignment]; AGroup 3 2 syms_5;
     AGroup 49 2 syms_6; AGroup 53 2 syms_7; AGroup 55 2 syms_8; AGroup 61 2 syms_9;
     AGroup 63 2 syms_10; AGroup 11080 2 syms_11; SGroup 7888 2 syms_12; SGroup 6994 3 syms_13;
     SGroup 8969 4 syms_14; AGroup 65 5 syms_15; SGroup 7765 14 syms_17]);
   (99634, 23, [AGroup 5 1 [sym_ppDirective]; AGroup 47 1 [anon_sym_LPAREN]; AGroup 51 1 [anon_sym_POUND];
     AGroup 73 1 [sym_kSpecialize]; AGroup 105 1 [sym_kInherited]; AGroup 117 1 [sym_kString];
     AGroup 11060 1 [anon_sym_LBRACK]; AGroup 15829 1 [sym_kIf]; AGroup 17072 1 [sym_kVar];
     SGroup 11649 1 [sym_varAssignDef]; SGroup 13922 1 [sym_assignment]; AGroup 3 2 syms_5;
     AGroup 49 2 syms_6; AGroup 53 2 syms_7; AGroup 55 2 syms_8; AGroup 61 2 syms_9;
     AGroup 63 2 syms_10; AGroup 11080 2 syms_11; SGroup 7888 2 syms_12; SGroup 6994 3 syms_13;
     SGroup 8970 4 syms_14; AGroup 65 5 syms_15; SGroup 7765 14 syms_17]);
   (99734, 23, [AGroup 5 1 [sym_ppDirective]; AGroup 47 1 [anon_sym_LPAREN]; AGroup 51 1 [anon_sym_POUND];
     AGroup 73 1 [sym_kSpecialize]; AGroup 105 1 [sym_kInherited]; AGroup 117 1 [sym_kString];
     AGroup 11060 1 [anon_sym_LBRACK]; AGroup 15829 1 [sym_kIf]; AGroup 17072 1 [sym_kVar];
     SGroup 11650 1 [sym_varAssignDef]; SGroup 13926 1 [sym_assignment]; AGroup 3 2 syms_5;
     AGroup 49 2 syms_6; AGroup 53 2 syms_7; AGroup 55 2 syms_8; AGroup 61 2 syms_9;
     AGroup 63 2 syms_10; AGroup 11080 2 syms_11; SGroup 7888 2 syms_12; SGroup 6994 3 syms_13;
     SGroup 8971 4 syms_14; AGroup 65 5 syms_15; SGroup 7765 14 syms_17]);
   (99834, 23, [AGroup 5 1 [sym_ppDirective]; AGroup 47 1 [anon_sym_LPAREN]; AGroup 51 1 [anon_sym_POUND];
     AGroup 73 1 [sym_kSpecialize]; AGroup 105 1 [sym_kInherited]; AGroup 117 1 [sym_kString];
     AGroup 11060 1 [anon_sym_LBRACK]; AGroup 15829 1 [sym_kIf]; AGroup 17072 1 [sym_kVar];
     SGroup 11651 1 [sym_varAssignDef]; SGroup 13931 1 [sym_assignment]; AGroup 3 2 syms_5;
     AGroup 49 2 syms_6; AGroup 53 2 syms_7; AGroup 55 2 syms_8; AGroup 61 2 syms_9;
     AGroup 63 2 syms_10; AGroup 11080 2 syms_11; SGroup 7888 2 syms_12; SGroup 6994 3 syms_13;
     SGroup 8972 4 syms_14; AGroup 65 5 syms_15; SGroup 7765 14 syms_17]);
   (99934, 23, [AGroup 5 1 [sym_ppDirective]; AGroup 47 1 [anon_sym_LPAREN]; AGroup 51 1 [anon_sym_POUND];
     AGroup 73 1 [sym_kSpecialize]; AGroup 105 1 [sym_kInherited]; AGroup 117 1 [sym_kString];
     AGroup 11060 1 [anon_sym_LBRACK]; AGroup 15829 1 [sym_kIf]; AGroup 17072 1 [sym_kVar];
     SGroup 11652 1 [sym_varAssignDef]; SGroup 13936 1 [sym_assignment]; AGroup 3 2 syms_5;
     AGroup 49 2 syms_6; AGroup 53 2 syms_7; AGroup 55 2 syms_8; AGroup 61 2 syms_9;
     AGroup 63 2 syms_10; AGroup 11080 2 syms_11; SGroup 7888 2 syms_12; SGroup 6994 3 syms_13;
     SGroup 8975 4 syms_14; AGroup 65 5 syms_15; SGroup 7765 14 syms_17]);
   (100034, 23, [AGroup 5 1 [sym_ppDirective]; AGroup 15647 1 [anon_sym_LBRACK];
     AGroup 15653 1 [anon_sym_POUND]; AGroup 15667 1 [sym_kSpecialize]; AGroup 15671 1 [sym_kIf];
     AGroup 15673 1 [sym_kInherited]; AGroup 15745 1 [anon_sym_LPAREN];
     AGroup 17076 1 [sym_kString]; AGroup 17614 1 [anon_sym_RPAREN];
     SGroup 4095 1 [aux_sym_exprArgs_repeat1]; SGroup 15219 1 [sym_exprArgs]; AGroup 3 2 syms_5;
     AGroup 15651 2 syms_6; AGroup 15655 2 syms_7; AGroup 15657 2 syms_8; AGroup 15659 2 syms_9;
     AGroup 15661 2 syms_10; AGroup 15669 2 syms_11; SGroup 8129 2 syms_12;
     SGroup 7100 3 syms_13; SGroup 8456 4 syms_14; AGroup 15663 5 syms_15; SGroup 7786 14 syms_17]);
   (100134, 23, [AGroup 5 1 [sym_ppDirective]; AGroup 47 1 [anon_sym_LPAREN]; AGroup 51 1 [anon_sym_POUND];
     AGroup 73 1 [sym_kSpecialize]; AGroup 105 1 [sym_kInherited]; AGroup 117 1 [sym_kString];
     AGroup 11060 1 [anon_sym_LBRACK]; AGroup 15829 1 [sym_kIf]; AGroup 17072 1 [sym_kVar];
     SGroup 11654 1 [sym_varAssignDef]; SGroup 13943 1 [sym_assignment]; AGroup 3 2 syms_5;
     AGroup 49 2 syms_6; AGroup 53 2 syms_7; AGroup 55 2 syms_8; AGroup 61 2 syms_9;
     AGroup 63 2 syms_10; AGroup 11080 2 syms_11; SGroup 7888 2 syms_12; SGroup 6994 3 syms_13;
     SGroup 8978 4 syms_14; AGroup 65 5 syms_15; SGroup 7765 14 syms_17]);
   (100234, 23, [AGroup 5 1 [sym_ppDirective]; AGroup 47 1 [anon_sym_LPAREN]; AGroup 51 1 [anon_sym_POUND];
     AGroup 73 1 [sym_kSpecialize]; AGroup 105 1 [sym_kInherited]; AGroup 117 1 [sym_kString];
     AGroup 11060 1 [anon_sym_LBRACK]; AGroup 15829 1 [sym_kIf]; AGroup 17072 1 [sym_kVar];
     SGroup 11655 1 [sym_varAssignDef]; SGroup 13947 1 [sym_assignment]; AGroup 3 2 syms_5;
     AGroup 49 2 syms_6; AGroup 53 2 syms_7; AGroup 55 2 syms_8; AGroup 61 2 syms_9;
     AGroup 63 2 syms_10; AGroup 11080 2 syms_11; SGroup 7888 2 syms_12; SGroup 6994 3 syms_13;
     SGroup 8979 4 syms_14; AGroup 65 5 syms_15; SGroup 7765 14 syms_17]);
   (100334, 23, [AGroup 5 1 [sym_ppDirective]; AGroup 47 1 [anon_sym_LPAREN]; AGroup 51 1 [anon_sym_POUND];
     AGroup 73 1 [sym_kSpecialize]; AGroup 105 1 [sym_kInherited]; AGroup 117 1 [sym_kString];
     AGroup 11060 1 [anon_sym_LBRACK]; AGroup 15829 1 [sym_kIf]; AGroup 17072 1 [sym_kVar];
     SGroup 11657 1 [sym_varAssignDef]; SGroup 13951 1 [sym_assignment]; AGroup 3 2 syms_5;
     AGroup 49 2 syms_6; AGroup 53 2 syms_7; AGroup 55 2 syms_8; AGroup 61 2 syms_9;
     AGroup 63 2 syms_10; AGroup 11080 2 syms_11; SGroup 7888 2 syms_12; SGroup 6994 3 syms_13;
     SGroup 8981 4 syms_14; AGroup 65 5 syms_15; SGroup 7765 14 syms_17]);
   (100434, 23, [AGroup 5 1 [sym_ppDirective]; AGroup 47 1 [anon_sym_LPAREN]; AGroup 51 1 [anon_sym_POUND];
     AGroup 73 1 [sym_kSpecialize]; AGroup 105 1 [sym_kInherited]; AGroup 117 1 [sym_kString];
     AGroup 11060 1 [anon_sym_LBRACK]; AGroup 15829 1 [sym_kIf]; AGroup 17072 1 [sym_kVar];
     SGroup 11658 1 [sym_varAssignDef]; SGroup 13954 1 [sym_assignment]; AGroup 3 2 syms_5;
     AGroup 49 2 syms_6; AGroup 53 2 syms_7; AGroup 55 2 syms_8; AGroup 61 2 syms_9;
     AGroup 63 2 syms_10; AGroup 11080 2 syms_11; SGroup 7888 2 syms_12; SGroup 6994 3 syms_13;
     SGroup 8982 4 syms_14; AGroup 65 5 syms_15; SGroup 7765 14 syms_17]);
   (100534, 23, [AGroup 5 1 [sym_ppDirective]; AGroup 47 1 [anon_sym_LPAREN]; AGroup 51 1 [anon_sym_POUND];
     AGroup 73 1 [sym_kSpecialize]; AGroup 105 1 [sym_kInherited]; AGroup 117 1 [sym_kString];
     AGroup 11060 1 [anon_sym_LBRACK]; AGroup 15829 1 [sym_kIf]; AGroup 17072 1 [sym_kVar];
     SGroup 11659 1 [sym_varAssignDef]; SGroup 13958 1 [sym_assignment]; AGroup 3 2 syms_5;
     AGroup 49 2 syms_6; AGroup 53 2 syms_7; AGroup 55 2 syms_8; AGroup 61 2 syms_9;
     AGroup 63 2 syms_10; AGroup 11080 2 syms_11; SGroup 7888 2 syms_12; SGroup 6994 3 syms_13;
     SGroup 8983 4 syms_14; AGroup 65 5 syms_15; SGroup 7765 14 syms_17]);
   (100634, 23, [AGroup 5 1 [sym_ppDirective]; AGroup 47 1 [anon_sym_LPAREN]; AGroup 51 1 [anon_sym_POUND];
     AGroup 73 1 [sym_kSpecialize]; AGroup 105 1 [sym_kInherited]; AGroup 117 1 [sym_kString];
     AGroup 11060 1 [anon_sym_LBRACK]; AGroup 15829 1 [sym_kIf]; AGroup 17072 1 [sym_kVar];
     SGroup 11660 1 [sym_varAssignDef]; SGroup 13962 1 [sym_assignment]; AGroup 3 2 syms_5;
     AGroup 49 2 syms_6; AGroup 53 2 syms_7; AGroup 55 2 syms_8; AGroup 61 2 syms_9;
     AGroup 63 2 syms_10; AGroup 11080 2 syms_11; SGroup 7888 2 syms_12; SGroup 6994 3 syms_13;
     SGroup 8984 4 syms_14; AGroup 65 5 syms_15; SGroup 7765 14 syms_17]);
   (100734, 23, [AGroup 5 1 [sym_ppDirective]; AGroup 47 1 [anon_sym_LPAREN]; AGroup 51 1 [anon_sym_POUND];
     AGroup 73 1 [sym_kSpecialize]; AGroup 105 1 [sym_kInherited]; AGroup 117 1 [sym_kString];
     AGroup 11060 1 [anon_sym_LBRACK]; AGroup 15829 1 [sym_kIf]; AGroup 17072 1 [sym_kVar];
     SGroup 11661 1 [sym_varAssignDef]; SGroup 13966 1 [sym_assignment]; AGroup 3 2 syms_5;
     AGroup 49 2 syms_6; AGroup 53 2 syms_7; AGroup 55 2 syms_8; AGroup 61 2 syms_9;
     AGroup 63 2 syms_10; AGroup 11080 2 syms_11; SGroup 7888 2 syms_12; SGroup 6994 3 syms_13;
     SGroup 8986 4 syms_14; AGroup 65 5 syms_15; SGroup 7765 14 syms_17]);
   (100834, 23, [AGroup 5 1 [sym_ppDirective]; AGroup 47 1 [anon_sym_LPAREN]; AGroup 51 1 [anon_sym_POUND];
     AGroup 73 1 [sym_kSpecialize]; AGroup 105 1 [sym_kInherited]; AGroup 117 1 [sym_kString];
     AGroup 11060 1 [anon_sym_LBRACK]; AGroup 15829 1 [sym_kIf]; AGroup 17072 1 [sym_kVar];
     SGroup 11662 1 [sym_varAssignDef]; SGroup 13970 1 [sym_assignment]; AGroup 3 2 syms_5;
     AGroup 49 2 syms_6; AGroup 53 2 syms_7; AGroup 55 2 syms_8; AGroup 61 2 syms_9;
     AGroup 63 2 syms_10; AGroup 11080 2 syms_11; SGroup 7888 2 syms_12; SGroup 6994 3 syms_13;
     SGroup 8987 4 syms_14; AGroup 65 5 syms_15; SGroup 7765 14 syms_17]);
   (100934, 23, [AGroup 5 1 [sym_ppDirective]; AGroup 47 1 [anon_sym_LPAREN]; AGroup 51 1 [anon_sym_POUND];
     AGroup 73 1 [sym_kSpecialize]; AGroup 105 1 [sym_kInherited]; AGroup 117 1 [sym_kString];
     AGroup 11060 1 [anon_sym_LBRACK]; AGroup 15829 1 [sym_kIf]; AGroup 17072 1 [sym_kVar];
     SGroup 11666 1 [sym_varAssignDef]; SGroup 13989 1 [sym_assignment]; AGroup 3 2 syms_5;
     AGroup 49 2 syms_6; AGroup 53 2 syms_7; AGroup 55 2 syms_8; AGroup 61 2 syms_9;
     AGroup 63 2 syms_10; AGroup 11080 2 syms_11; SGroup 7888 2 syms_12; SGroup 6994 3 syms_13;
     SGroup 8988 4 syms_14; AGroup 65 5 syms_15; SGroup 7765 14 syms_17]);
   (101034, 23, [AGroup 5 1 [sym_ppDirective]; AGroup 47 1 [anon_sym_LPAREN]; AGroup 51 1 [anon_sym_POUND];
     AGroup 73 1 [sym_kSpecialize]; AGroup 105 1 [sym_kInherited]; AGroup 117 1 [sym_kString];
     AGroup 11060 1 [anon_sym_LBRACK]; AGroup 15829 1 [sym_kIf]; AGroup 17072 1 [sym_kVar];
     SGroup 11668 1 [sym_varAssignDef]; SGroup 14006 1 [sym_assignment]; AGroup 3 2 syms_5;
     AGroup 49 2 syms_6; AGroup 53 2 syms_7; AGroup 55 2 syms_8; AGroup 61 2 syms_9;
     AGroup 63 2 syms_10; AGroup 11080 2 syms_11; SGroup 7888 2 syms_12; SGroup 6994 3 syms_13;
     SGroup 8992 4 syms_14; AGroup 65 5 syms_15; SGroup 7765 14 syms_17]);
   (101134, 23, [AGroup 5 1 [sym_ppDirective]; AGroup 47 1 [anon_sym_LPAREN]; AGroup 51 1 [anon_sym_POUND];
     AGroup 73 1 [sym_kSpecialize]; AGroup 105 1 [sym_kInherited]; AGroup 117 1 [sym_kString];
     AGroup 11060 1 [anon_sym_LBRACK]; AGroup 15829 1 [sym_kIf]; AGroup 17072 1 [sym_kVar];
     SGroup 11670 1 [sym_varAssignDef]; SGroup 14017 1 [sym_assignment]; AGroup 3 2 syms_5;
     AGroup 49 2 syms_6; AGroup 53 2 syms_7; AGroup 55 2 syms_8; AGroup 61 2 syms_9;
     AGroup 63 2 syms_10; AGroup 11080 2 syms_11; SGroup 7888 2 syms_12; SGroup 6994 3 syms_13;
     SGroup 8993 4 syms_14; AGroup 65 5 syms_15; SGroup 7765 14 syms_17]);
   (101234, 23, [AGroup 5 1 [sym_ppDirective]; AGroup 47 1 [anon_sym_LPAREN]; AGroup 51 1 [anon_sym_POUND];
     AGroup 73 1 [sym_kSpecialize]; AGroup 105 1 [sym_kInherited]; AGroup 117 1 [sym_kString];
     AGroup 11060 1 [anon_sym_LBRACK]; AGroup 15829 1 [sym_kIf]; AGroup 17072 1 [sym_kVar];
     SGroup 11671 1 [sym_varAssignDef]; SGroup 14025 1 [sym_assignment]; AGroup 3 2 syms_5;
     AGroup 49 2 syms_6; AGroup 53 2 syms_7; AGroup 55 2 syms_8; AGroup 61 2 syms_9;
     AGroup 63 2 syms_10; AGroup 11080 2 syms_11; SGroup 7888 2 syms_12; SGroup 6994 3 syms_13;
     SGroup 8996 4 syms_14; AGroup 65 5 syms_15; SGroup 7765 14 syms_17]);
   (101334, 23, [AGroup 5 1 [sym_ppDirective]; AGroup 47 1 [anon_sym_LPAREN]; AGroup 51 1 [anon_sym_POUND];
     AGroup 73 1 [sym_kSpecialize]; AGroup 105 1 [sym_kInherited]; AGroup 117 1 [sym_kString];
     AGroup 11060 1 [anon_sym_LBRACK]; AGroup 15829 1 [sym_kIf]; AGroup 17072 1 [sym_kVar];
     SGroup 11673 1 [sym_varAssignDef]; SGroup 14037 1 [sym_assignment]; AGroup 3 2 syms_5;
     AGroup 49 2 syms_6; AGroup 53 2 syms_7; AGroup 55 2 syms_8; AGroup 61 2 syms_9;
     AGroup 63 2 syms_10; AGroup 11080 2 syms_11; SGroup 7888 2 syms_12; SGroup 6994 3 syms_13;
     SGroup 8999 4 syms_14; AGroup 65 5 syms_15; SGroup 7765 14 syms_17]);
   (101434, 23, [AGroup 5 1 [sym_ppDirective]; AGroup 47 1 [anon_sym_LPAREN]; AGroup 51 1 [anon_sym_POUND];
     AGroup 73 1 [sym_kSpecialize]; AGroup 105 1 [sym_kInherited]; AGroup 117 1 [sym_kString];
     AGroup 11060 1 [anon_sym_LBRACK]; AGroup 15829 1 [sym_kIf]; AGroup 17072 1 [sym_kVar];
     SGroup 11675 1 [sym_varAssignDef]; SGroup 14047 1 [sym_assignment]; AGroup 3 2 syms_5;
     AGroup 49 2 syms_6; AGroup 53 2 syms_7; AGroup 55 2 syms_8; AGroup 61 2 syms_9;
     AGroup 63 2 syms_10; AGroup 11080 2 syms_11; SGroup 7888 2 syms_12; SGroup 6994 3 syms_13;
     SGroup 9005 4 syms_14; AGroup 65 5 syms_15; SGroup 7765 14 syms_17]);
   (101534, 23, [AGroup 5 1 [sym_ppDirective]; AGroup 47 1 [anon_sym_LPAREN]; AGroup 51 1 [anon_sym_POUND];
     AGroup 73 1 [sym_kSpecialize]; AGroup 105 1 [sym_kInherited]; AGroup 117 1 [sym_kString];
     AGroup 11060 1 [anon_sym_LBRACK]; AGroup 15829 1 [sym_kIf]; AGroup 17072 1 [sym_kVar];
     SGroup 11676 1 [sym_varAssignDef]; SGroup 14051 1 [sym_assignment]; AGroup 3 2 syms_5;
     AGroup 49 2 syms_6; AGroup 53 2 syms_7; AGroup 55 2 syms_8; AGroup 61 2 syms_9;
     AGroup 63 2 syms_10; AGroup 11080 2 syms_11; SGroup 7888 2 syms_12; SGroup 6994 3 syms_13;
     SGroup 9009 4 syms_14; AGroup 65 5 syms_15; SGroup 7765 14 syms_17]);
   (101634, 23, [AGroup 5 1 [sym_ppDirective]; AGroup 15011 1 [anon_sym_LBRACK];
     AGroup 15013 1 [anon_sym_LPAREN]; AGroup 15017 1 [anon_sym_POUND];
     AGroup 15029 1 [sym_kSpecialize]; AGroup 15035 1 [sym_kIf]; AGroup 15037 1 [sym_kInherited];
     AGroup 15039 1 [sym_kString]; AGroup 17616 1 [anon_sym_RBRACK];
     SGroup 3946 1 [aux_sym_caseLabel_repeat1]; SGroup 13500 1 [sym_range]; AGroup 3 2 syms_5;
     AGroup 15015 2 syms_6; AGroup 15019 2 syms_7; AGroup 15021 2 syms_8; AGroup 15023 2 syms_9;
     AGroup 15025 2 syms_10; AGroup 15033 2 syms_11; SGroup 8466 2 syms_12;
     SGroup 7201 3 syms_13; SGroup 9556 4 syms_14; AGroup 15027 5 syms_15; SGroup 7990 14 syms_17]);
   (101734, 22, [AGroup 5 1 [sym_ppDirective]; AGroup 15647 1 [anon_sym_LBRACK];
     AGroup 15653 1 [anon_sym_POUND]; AGroup 15667 1 [sym_kSpecialize]; AGroup 15671 1 [sym_kIf];
     AGroup 15673 1 [sym_kInherited]; AGroup 15745 1 [anon_sym_LPAREN];
     AGroup 17076 1 [sym_kString]; SGroup 4095 1 [aux_sym_exprArgs_repeat1];
     SGroup 14915 1 [sym_exprArgs]; AGroup 3 2 syms_5; AGroup 15651 2 syms_6;
     AGroup 15655 2 syms_7; AGroup 15657 2 syms_8; AGroup 15659 2 syms_9; AGroup 15661 2 syms_10;
     AGroup 15669 2 syms_11; SGroup 8129 2 syms_12; SGroup 7100 3 syms_13; SGroup 8456 4 syms_14;
     AGroup 15663 5 syms_15; SGroup 7786 14 syms_17]);
   (101831, 22, [AGroup 5 1 [sym_ppDirective]; AGroup 15011 1 [anon_sym_LBRACK];
     AGroup 15013 1 [anon_sym_LPAREN]; AGroup 15017 1 [anon_sym_POUND];
     AGroup 15029 1 [sym_kSpecialize]; AGroup 15035 1 [sym_kIf]; AGroup 15037 1 [sym_kInherited];
     AGroup 15039 1 [sym_kString]; SGroup 3812 1 [aux_sym_declArray_repeat1];
     SGroup 13118 1 [sym_range]; AGroup 3 2 syms_5; AGroup 15015 2 syms_6; AGroup 15019 2 syms_7;
     AGroup 15021 2 syms_8; AGroup 15023 2 syms_9; AGroup 15025 2 syms_10;
     AGroup 15033 2 syms_11; SGroup 8466 2 syms_12; SGroup 7201 3 syms_13; SGroup 9520 4 syms_14;
     AGroup 15027 5 syms_15; SGroup 7990 14 syms_17]);
   (101928, 5, [AGroup 5 1 [sym_ppDirective]; AGroup 3 2 syms_5; AGroup 15496 4 syms_25;
     AGroup 15403 18 syms_36; AGroup 15494 27 syms_123]);
   (101991, 22, [AGroup 5 1 [sym_ppDirective]; AGroup 17618 1 [anon_sym_LBRACK];
     AGroup 17621 1 [anon_sym_LPAREN]; AGroup 17627 1 [anon_sym_POUND];
     AGroup 17645 1 [sym_kSpecialize]; AGroup 17651 1 [sym_kIf]; AGroup 17654 1 [sym_kInherited];
     AGroup 17657 1 [sym_kString]; SGroup 3809 1 [aux_sym_caseLabel_repeat1];
     SGroup 15318 1 [sym_range]; AGroup 3 2 syms_5; AGroup 17624 2 syms_6; AGroup 17630 2 syms_7;
     AGroup 17633 2 syms_8; AGroup 17636 2 syms_9; AGroup 17639 2 syms_10;
     AGroup 17648 2 syms_11; SGroup 8466 2 syms_12; SGroup 7201 3 syms_13; SGroup 9725 4 syms_14;
     AGroup 17642 5 syms_15; SGroup 7990 14 syms_17]);
   (102088, 22, [AGroup 5 1 [sym_ppDirective]; AGroup 15011 1 [anon_sym_LBRACK];
     AGroup 15013 1 [anon_sym_LPAREN]; AGroup 15017 1 [anon_sym_POUND];
     AGroup 15029 1 [sym_kSpecialize]; AGroup 15035 1 [sym_kIf]; AGroup 15037 1 [sym_kInherited];
     AGroup 15039 1 [sym_kString]; SGroup 3809 1 [aux_sym_caseLabel_repeat1];
     SGroup 13432 1 [sym_range]; AGroup 3 2 syms_5; AGroup 15015 2 syms_6; AGroup 15019 2 syms_7;
     AGroup 15021 2 syms_8; AGroup 15023 2 syms_9; AGroup 15025 2 syms_10;
     AGroup 15033 2 syms_11; SGroup 8466 2 syms_12; SGroup 7201 3 syms_13; SGroup 9532 4 syms_14;
     AGroup 15027 5 syms_15; SGroup 7990 14 syms_17]);
   (102185, 22, [AGroup 5 1 [sym_ppDirective]; AGroup 15647 1 [anon_sym_LBRACK];
     AGroup 15653 1 [anon_sym_POUND]; AGroup 15667 1 [sym_kSpecialize]; AGroup 15671 1 [sym_kIf];
     AGroup 15673 1 [sym_kInherited]; AGroup 15745 1 [anon_sym_LPAREN];
     AGroup 17076 1 [sym_kString]; SGroup 4095 1 [aux_sym_exprArgs_repeat1];
     SGroup 14406 1 [sym_exprArgs]; AGroup 3 2 syms_5; AGroup 15651 2 syms_6;
     AGroup 15655 2 syms_7; AGroup 15657 2 syms_8; AGroup 15659 2 syms_9; AGroup 15661 2 syms_10;
     AGroup 15669 2 syms_11; SGroup 8129 2 syms_12; SGroup 7100 3 syms_13; SGroup 8456 4 syms_14;
     AGroup 15663 5 syms_15; SGroup 7786 14 syms_17]);
   (102282, 22, [AGroup 5 1 [sym_ppDirective]; AGroup 17660 1 [anon_sym_LBRACK];
     AGroup 17663 1 [anon_sym_LPAREN]; AGroup 17669 1 [anon_sym_POUND];
     AGroup 17687 1 [sym_kSpecialize]; AGroup 17693 1 [sym_kIf]; AGroup 17696 1 [sym_kInherited];
     AGroup 17699 1 [sym_kString]; SGroup 3812 1 [aux_sym_declArray_repeat1];
     SGroup 15609 1 [sym_range]; AGroup 3 2 syms_5; AGroup 17666 2 syms_6; AGroup 17672 2 syms_7;
     AGroup 17675 2 syms_8; AGroup 17678 2 syms_9; AGroup 17681 2 syms_10;
     AGroup 17690 2 syms_11; SGroup 8466 2 syms_12; SGroup 7201 3 syms_13; SGroup 9805 4 syms_14;
     AGroup 17684 5 syms_15; SGroup 7990 14 syms_17]);
   (102379, 29, [AGroup 5 1 [sym_ppDirective]; AGroup 14853 1 [anon_sym_POUND];
     AGroup 15299 1 [anon_sym_LPAREN]; AGroup 15301 1 [sym_kHat];
     AGroup 15303 1 [sym_ppFragmentExpr]; AGroup 15305 1 [sym_identifier];
     AGroup 15307 1 [sym_kSpecialize]; AGroup 15309 1 [sym_kReference];
     AGroup 15311 1 [sym_kArray]; AGroup 15313 1 [sym_kClass]; AGroup 15317 1 [sym_kFile];
     AGroup 15321 1 [sym_kPacked]; AGroup 15323 1 [sym_kRecord]; AGroup 15325 1 [sym_kSet];
     AGroup 15327 1 [sym_kString]; SGroup 10605 1 [sym__subRangeUnary];
     SGroup 10614 1 [sym__subRangeBinary]; SGroup 10620 1 [sym__subRangeCall]; AGroup 3 2 syms_5;
     AGroup 14851 2 syms_6; AGroup 14855 2 syms_7; AGroup 14857 2 syms_8; AGroup 14861 2 syms_9;
     AGroup 15319 2 syms_11; SGroup 10647 2 syms_12; SGroup 10482 3 syms_13;
     SGroup 11297 3 syms_30; SGroup 10560 4 syms_31; SGroup 11691 10 syms_32]);
   (102490, 23, [AGroup 5 1 [sym_ppDirective]; AGroup 15647 1 [anon_sym_LBRACK];
     AGroup 15653 1 [anon_sym_POUND]; AGroup 15667 1 [sym_kSpecialize];
     AGroup 15673 1 [sym_kInherited]; AGroup 15675 1 [sym_kString];
     AGroup 15745 1 [anon_sym_LPAREN]; AGroup 15755 1 [sym_kIf];
     AGroup 17702 1 [anon_sym_RBRACK]; AGroup 17706 1 [sym_identifier];
     SGroup 4130 1 [aux_sym_rttiAttributes_repeat1]; AGroup 3 2 syms_5; AGroup 15651 2 syms_6;
     AGroup 15655 2 syms_7; AGroup 15657 2 syms_8; AGroup 15669 2 syms_11; AGroup 15747 2 syms_9;
     AGroup 15749 2 syms_10; SGroup 8129 2 syms_12; SGroup 7100 3 syms_13;
     AGroup 17704 4 syms_57; SGroup 10347 4 syms_14; SGroup 8659 14 syms_17]);
   (102589, 29, [AGroup 5 1 [sym_ppDirective]; AGroup 14853 1 [anon_sym_POUND];
     AGroup 15299 1 [anon_sym_LPAREN]; AGroup 15301 1 [sym_kHat];
     AGroup 15303 1 [sym_ppFragmentExpr]; AGroup 15305 1 [sym_identifier];
     AGroup 15307 1 [sym_kSpecialize]; AGroup 15309 1 [sym_kReference];
     AGroup 15311 1 [sym_kArray]; AGroup 15313 1 [sym_kClass]; AGroup 15317 1 [sym_kFile];
     AGroup 15321 1 [sym_kPacked]; AGroup 15323 1 [sym_kRecord]; AGroup 15325 1 [sym_kSet];
     AGroup 15327 1 [sym_kString]; SGroup 10605 1 [sym__subRangeUnary];
     SGroup 10614 1 [sym__subRangeBinary]; SGroup 10620 1 [sym__subRangeCall]; AGroup 3 2 syms_5;
     AGroup 14851 2 syms_6; AGroup 14855 2 syms_7; AGroup 14857 2 syms_8; AGroup 14861 2 syms_9;
     AGroup 15319 2 syms_11; SGroup 10647 2 syms_12; SGroup 10482 3 syms_13;
     SGroup 11297 3 syms_30; SGroup 10560 4 syms_31; SGroup 11838 10 syms_32]);
   (102700, 22, [AGroup 5 1 [sym_ppDirective]; AGroup 15647 1 [anon_sym_LBRACK];
     AGroup 15653 1 [anon_sym_POUND]; AGroup 15667 1 [sym_kSpecialize]; AGroup 15671 1 [sym_kIf];
     AGroup 15673 1 [sym_kInherited]; AGroup 15745 1 [anon_sym_LPAREN];
     AGroup 17076 1 [sym_kString]; SGroup 4095 1 [aux_sym_exprArgs_repeat1];
     SGroup 14999 1 [sym_exprArgs]; AGroup 3 2 syms_5; AGroup 15651 2 syms_6;
     AGroup 15655 2 syms_7; AGroup 15657 2 syms_8; AGroup 15659 2 syms_9; AGroup 15661 2 syms_10;
     AGroup 15669 2 syms_11; SGroup 8129 2 syms_12; SGroup 7100 3 syms_13; SGroup 8456 4 syms_14;
     AGroup 15663 5 syms_15; SGroup 7786 14 syms_17]);
   (102797, 22, [AGroup 5 1 [sym_ppDirective]; AGroup 15576 1 [sym_kElse]; AGroup 16071 1 [anon_sym_LBRACK];
     AGroup 16073 1 [anon_sym_LPAREN]; AGroup 16077 1 [anon_sym_POUND];
     AGroup 16091 1 [sym_kSpecialize]; AGroup 16095 1 [sym_kIf]; AGroup 16097 1 [sym_kInherited];
     AGroup 17708 1 [anon_sym_SEMI]; AGroup 17710 1 [sym_kString]; AGroup 3 2 syms_5;
     AGroup 16075 2 syms_6; AGroup 16079 2 syms_7; AGroup 16081 2 syms_8; AGroup 16083 2 syms_9;
     AGroup 16085 2 syms_10; AGroup 16093 2 syms_11; SGroup 8930 2 syms_12;
     SGroup 7257 3 syms_13; SGroup 9523 4 syms_14; AGroup 16087 5 syms_15; SGroup 8310 14 syms_17]);
   (102894, 22, [AGroup 5 1 [sym_ppDirective]; AGroup 15647 1 [anon_sym_LBRACK];
     AGroup 15653 1 [anon_sym_POUND]; AGroup 15667 1 [sym_kSpecialize];
     AGroup 15673 1 [sym_kInherited]; AGroup 15675 1 [sym_kString];
     AGroup 15745 1 [anon_sym_LPAREN]; AGroup 15755 1 [sym_kIf];
     AGroup 17712 1 [anon_sym_RBRACK]; SGroup 4062 1 [aux_sym_rttiAttributes_repeat1];
     AGroup 3 2 syms_5; AGroup 15651 2 syms_6; AGroup 15655 2 syms_7; AGroup 15657 2 syms_8;
     AGroup 15669 2 syms_11; AGroup 15747 2 syms_9; AGroup 15749 2 syms_10;
     SGroup 8129 2 syms_12; SGroup 7100 3 syms_13; SGroup 10347 4 syms_14;
     AGroup 17714 5 syms_15; SGroup 8699 14 syms_17]);
   (102991, 22, [AGroup 5 1 [sym_ppDirective]; AGroup 15011 1 [anon_sym_LBRACK];
     AGroup 15013 1 [anon_sym_LPAREN]; AGroup 15017 1 [anon_sym_POUND];
     AGroup 15029 1 [sym_kSpecialize]; AGroup 15035 1 [sym_kIf]; AGroup 15037 1 [sym_kInherited];
     AGroup 15039 1 [sym_kString]; SGroup 3809 1 [aux_sym_caseLabel_repeat1];
     SGroup 13041 1 [sym_range]; AGroup 3 2 syms_5; AGroup 15015 2 syms_6; AGroup 15019 2 syms_7;
     AGroup 15021 2 syms_8; AGroup 15023 2 syms_9; AGroup 15025 2 syms_10;
     AGroup 15033 2 syms_11; SGroup 8466 2 syms_12; SGroup 7201 3 syms_13; SGroup 9553 4 syms_14;
     AGroup 15027 5 syms_15; SGroup 7990 14 syms_17]);
   (103088, 22, [AGroup 5 1 [sym_ppDirective]; AGroup 15647 1 [anon_sym_LBRACK];
     AGroup 15653 1 [anon_sym_POUND]; AGroup 15667 1 [sym_kSpecialize]; AGroup 15671 1 [sym_kIf];
     AGroup 15673 1 [sym_kInherited]; AGroup 15745 1 [anon_sym_LPAREN];
     AGroup 17076 1 [sym_kString]; SGroup 4095 1 [aux_sym_exprArgs_repeat1];
     SGroup 15204 1 [sym_exprArgs]; AGroup 3 2 syms_5; AGroup 15651 2 syms_6;
     AGroup 15655 2 syms_7; AGroup 15657 2 syms_8; AGroup 15659 2 syms_9; AGroup 15661 2 syms_10;
     AGroup 15669 2 syms_11; SGroup 8129 2 syms_12; SGroup 7100 3 syms_13; SGroup 8456 4 syms_14;
     AGroup 15663 5 syms_15; SGroup 7786 14 syms_17]);
   (103185, 4, [AGroup 5 1 [sym_ppDirective]; AGroup 3 2 syms_5; AGroup 15295 4 syms_25;
     AGroup 15293 45 syms_124]);
   (103246, 22, [AGroup 5 1 [sym_ppDirective]; AGroup 15011 1 [anon_sym_LBRACK];
     AGroup 15013 1 [anon_sym_LPAREN]; AGroup 15017 1 [anon_sym_POUND];
     AGroup 15029 1 [sym_kSpecialize]; AGroup 15035 1 [sym_kIf]; AGroup 15037 1 [sym_kInherited];
     AGroup 15039 1 [sym_kString]; SGroup 3809 1 [aux_sym_caseLabel_repeat1];
     SGroup 13394 1 [sym_range]; AGroup 3 2 syms_5; AGroup 15015 2 syms_6; AGroup 15019 2 syms_7;
     AGroup 15021 2 syms_8; AGroup 15023 2 syms_9; AGroup 15025 2 syms_10;
     AGroup 15033 2 syms_11; SGroup 8466 2 syms_12; SGroup 7201 3 syms_13; SGroup 9399 4 syms_14;
     AGroup 15027 5 syms_15; SGroup 7990 14 syms_17]);
   (103343, 22, [AGroup 5 1 [sym_ppDirective]; AGroup 15647 1 [anon_sym_LBRACK];
     AGroup 15653 1 [anon_sym_POUND]; AGroup 15667 1 [sym_kSpecialize]; AGroup 15671 1 [sym_kIf];
     AGroup 15673 1 [sym_kInherited]; AGroup 15745 1 [anon_sym_LPAREN];
     AGroup 17076 1 [sym_kString]; SGroup 4095 1 [aux_sym_exprArgs_repeat1];
     SGroup 14927 1 [sym_exprArgs]; AGroup 3 2 syms_5; AGroup 15651 2 syms_6;
     AGroup 15655 2 syms_7; AGroup 15657 2 syms_8; AGroup 15659 2 syms_9; AGroup 15661 2 syms_10;
     AGroup 15669 2 syms_11; SGroup 8129 2 syms_12; SGroup 7100 3 syms_13; SGroup 8456 4 syms_14;
     AGroup 15663 5 syms_15; SGroup 7786 14 syms_17]);
   (103440, 22, [AGroup 5 1 [sym_ppDirective]; AGroup 15576 1 [sym_kUntil]; AGroup 15791 1 [anon_sym_LBRACK];
     AGroup 15793 1 [anon_sym_LPAREN]; AGroup 15797 1 [anon_sym_POUND];
     AGroup 15811 1 [sym_kSpecialize]; AGroup 15815 1 [sym_kIf]; AGroup 15817 1 [sym_kInherited];
     AGroup 17492 1 [anon_sym_SEMI]; AGroup 17716 1 [sym_kString]; AGroup 3 2 syms_5;
     AGroup 15795 2 syms_6; AGroup 15799 2 syms_7; AGroup 15801 2 syms_8; AGroup 15803 2 syms_9;
     AGroup 15805 2 syms_10; AGroup 15813 2 syms_11; SGroup 8765 2 syms_12;
     SGroup 7328 3 syms_13; SGroup 9534 4 syms_14; AGroup 15807 5 syms_15; SGroup 8252 14 syms_17]);
   (103537, 22, [AGroup 5 1 [sym_ppDirective]; AGroup 15647 1 [anon_sym_LBRACK];
     AGroup 15653 1 [anon_sym_POUND]; AGroup 15667 1 [sym_kSpecialize];
     AGroup 15673 1 [sym_kInherited]; AGroup 15675 1 [sym_kString];
     AGroup 15745 1 [anon_sym_LPAREN]; AGroup 15755 1 [sym_kIf];
     AGroup 17718 1 [anon_sym_RBRACK]; SGroup 4110 1 [aux_sym_rttiAttributes_repeat1];
     AGroup 3 2 syms_5; AGroup 15651 2 syms_6; AGroup 15655 2 syms_7; AGroup 15657 2 syms_8;
     AGroup 15669 2 syms_11; AGroup 15747 2 syms_9; AGroup 15749 2 syms_10;
     SGroup 8129 2 syms_12; SGroup 7100 3 syms_13; SGroup 10347 4 syms_14;
     AGroup 17720 5 syms_15; SGroup 8625 14 syms_17]);
   (103634, 22, [AGroup 5 1 [sym_ppDirective]; AGroup 15647 1 [anon_sym_LBRACK];
     AGroup 15653 1 [anon_sym_POUND]; AGroup 15667 1 [sym_kSpecialize]; AGroup 15671 1 [sym_kIf];
     AGroup 15673 1 [sym_kInherited]; AGroup 15745 1 [anon_sym_LPAREN];
     AGroup 17076 1 [sym_kString]; SGroup 4095 1 [aux_sym_exprArgs_repeat1];
     SGroup 15211 1 [sym_exprArgs]; AGroup 3 2 syms_5; AGroup 15651 2 syms_6;
     AGroup 15655 2 syms_7; AGroup 15657 2 syms_8; AGroup 15659 2 syms_9; AGroup 15661 2 syms_10;
     AGroup 15669 2 syms_11; SGroup 8129 2 syms_12; SGroup 7100 3 syms_13; SGroup 8456 4 syms_14;
     AGroup 15663 5 syms_15; SGroup 7786 14 syms_17]);
   (103731, 5, [AGroup 5 1 [sym_ppDirective]; AGroup 3 2 syms_5; AGroup 15492 7 syms_34;
     AGroup 15403 18 syms_36; AGroup 15490 24 syms_125]);
   (103794, 22, [AGroup 5 1 [sym_ppDirective]; AGroup 15011 1 [anon_sym_LBRACK];
     AGroup 15013 1 [anon_sym_LPAREN]; AGroup 15017 1 [anon_sym_POUND];
     AGroup 15029 1 [sym_kSpecialize]; AGroup 15035 1 [sym_kIf]; AGroup 15037 1 [sym_kInherited];
     AGroup 15039 1 [sym_kString]; SGroup 3809 1 [aux_sym_caseLabel_repeat1];
     SGroup 13853 1 [sym_range]; AGroup 3 2 syms_5; AGroup 15015 2 syms_6; AGroup 15019 2 syms_7;
     AGroup 15021 2 syms_8; AGroup 15023 2 syms_9; AGroup 15025 2 syms_10;
     AGroup 15033 2 syms_11; SGroup 8466 2 syms_12; SGroup 7201 3 syms_13; SGroup 9579 4 syms_14;
     AGroup 15027 5 syms_15; SGroup 7990 14 syms_17]);
   (103891, 22, [AGroup 5 1 [sym_ppDirective]; AGroup 15647 1 [anon_sym_LBRACK];
     AGroup 15653 1 [anon_sym_POUND]; AGroup 15667 1 [sym_kSpecialize]; AGroup 15671 1 [sym_kIf];
     AGroup 15673 1 [sym_kInherited]; AGroup 15745 1 [anon_sym_LPAREN];
     AGroup 17076 1 [sym_kString]; SGroup 4095 1 [aux_sym_exprArgs_repeat1];
     SGroup 14787 1 [sym_exprArgs]; AGroup 3 2 syms_5; AGroup 15651 2 syms_6;
     AGroup 15655 2 syms_7; AGroup 15657 2 syms_8; AGroup 15659 2 syms_9; AGroup 15661 2 syms_10;
     AGroup 15669 2 syms_11; SGroup 8129 2 syms_12; SGroup 7100 3 syms_13; SGroup 8456 4 syms_14;
     AGroup 15663 5 syms_15; SGroup 7786 14 syms_17]);
   (103988, 4, [AGroup 5 1 [sym_ppDirective]; AGroup 3 2 syms_5; AGroup 15355 4 syms_25;
     AGroup 15353 45 syms_124]);
   (104049, 22, [AGroup 5 1 [sym_ppDirective]; AGroup 15647 1 [anon_sym_LBRACK];
     AGroup 15653 1 [anon_sym_POUND]; AGroup 15667 1 [sym_kSpecialize];
     AGroup 15673 1 [sym_kInherited]; AGroup 15675 1 [sym_kString];
     AGroup 15745 1 [anon_sym_LPAREN]; AGroup 15755 1 [sym_kIf];
     AGroup 17722 1 [anon_sym_RBRACK]; SGroup 4115 1 [aux_sym_rttiAttributes_repeat1];
     AGroup 3 2 syms_5; AGroup 15651 2 syms_6; AGroup 15655 2 syms_7; AGroup 15657 2 syms_8;
     AGroup 15669 2 syms_11; AGroup 15747 2 syms_9; AGroup 15749 2 syms_10;
     SGroup 8129 2 syms_12; SGroup 7100 3 syms_13; SGroup 10347 4 syms_14;
     AGroup 17724 5 syms_15; SGroup 8634 14 syms_17]);
   (104146, 7, [AGroup 5 1 [sym_ppDirective]; AGroup 17729 1 [anon_sym_POUND]; AGroup 3 2 syms_5;
     AGroup 17726 2 syms_6; SGroup 3832 3 syms_13; AGroup 15241 4 syms_25;
     AGroup 15239 39 syms_126]);
   (104213, 22, [AGroup 5 1 [sym_ppDirective]; AGroup 15011 1 [anon_sym_LBRACK];
     AGroup 15013 1 [anon_sym_LPAREN]; AGroup 15017 1 [anon_sym_POUND];
     AGroup 15029 1 [sym_kSpecialize]; AGroup 15035 1 [sym_kIf]; AGroup 15037 1 [sym_kInherited];
     AGroup 15039 1 [sym_kString]; SGroup 3809 1 [aux_sym_caseLabel_repeat1];
     SGroup 13672 1 [sym_range]; AGroup 3 2 syms_5; AGroup 15015 2 syms_6; AGroup 15019 2 syms_7;
     AGroup 15021 2 syms_8; AGroup 15023 2 syms_9; AGroup 15025 2 syms_10;
     AGroup 15033 2 syms_11; SGroup 8466 2 syms_12; SGroup 7201 3 syms_13; SGroup 9586 4 syms_14;
     AGroup 15027 5 syms_15; SGroup 7990 14 syms_17]);
   (104310, 22, [AGroup 5 1 [sym_ppDirective]; AGroup 15647 1 [anon_sym_LBRACK];
     AGroup 15653 1 [anon_sym_POUND]; AGroup 15667 1 [sym_kSpecialize]; AGroup 15671 1 [sym_kIf];
     AGroup 15673 1 [sym_kInherited]; AGroup 15745 1 [anon_sym_LPAREN];
     AGroup 17076 1 [sym_kString]; SGroup 4095 1 [aux_sym_exprArgs_repeat1];
     SGroup 15561 1 [sym_exprArgs]; AGroup 3 2 syms_5; AGroup 15651 2 syms_6;
     AGroup 15655 2 syms_7; AGroup 15657 2 syms_8; AGroup 15659 2 syms_9; AGroup 15661 2 syms_10;
     AGroup 15669 2 syms_11; SGroup 8129 2 syms_12; SGroup 7100 3 syms_13; SGroup 8456 4 syms_14;
     AGroup 15663 5 syms_15; SGroup 7786 14 syms_17]);
   (104407, 3, [AGroup 5 1 [sym_ppDirective]; AGroup 3 2 syms_5; AGroup 9858 49 syms_127]);
   (104466, 29, [AGroup 5 1 [sym_ppDirective]; AGroup 14853 1 [anon_sym_POUND];
     AGroup 15299 1 [anon_sym_LPAREN]; AGroup 15301 1 [sym_kHat];
     AGroup 15303 1 [sym_ppFragmentExpr]; AGroup 15305 1 [sym_identifier];
     AGroup 15307 1 [sym_kSpecialize]; AGroup 15309 1 [sym_kReference];
     AGroup 15311 1 [sym_kArray]; AGroup 15313 1 [sym_kClass]; AGroup 15317 1 [sym_kFile];
     AGroup 15321 1 [sym_kPacked]; AGroup 15323 1 [sym_kRecord]; AGroup 15325 1 [sym_kSet];
     AGroup 15327 1 [sym_kString]; SGroup 10605 1 [sym__subRangeUnary];
     SGroup 10614 1 [sym__subRangeBinary]; SGroup 10620 1 [sym__subRangeCall]; AGroup 3 2 syms_5;
     AGroup 14851 2 syms_6; AGroup 14855 2 syms_7; AGroup 14857 2 syms_8; AGroup 14861 2 syms_9;
     AGroup 15319 2 syms_11; SGroup 10647 2 syms_12; SGroup 10482 3 syms_13;
     SGroup 11297 3 syms_30; SGroup 10560 4 syms_31; SGroup 11715 10 syms_32]);
   (104577, 5, [AGroup 5 1 [sym_ppDirective]; AGroup 3 2 syms_5; AGroup 15439 7 syms_34;
     AGroup 15403 18 syms_36; AGroup 15437 24 syms_128]);
   (104640, 22, [AGroup 5 1 [sym_ppDirective]; AGroup 15011 1 [anon_sym_LBRACK];
     AGroup 15013 1 [anon_sym_LPAREN]; AGroup 15017 1 [anon_sym_POUND];
     AGroup 15029 1 [sym_kSpecialize]; AGroup 15035 1 [sym_kIf]; AGroup 15037 1 [sym_kInherited];
     AGroup 15039 1 [sym_kString]; SGroup 3809 1 [aux_sym_caseLabel_repeat1];
     SGroup 13707 1 [sym_range]; AGroup 3 2 syms_5; AGroup 15015 2 syms_6; AGroup 15019 2 syms_7;
     AGroup 15021 2 syms_8; AGroup 15023 2 syms_9; AGroup 15025 2 syms_10;
     AGroup 15033 2 syms_11; SGroup 8466 2 syms_12; SGroup 7201 3 syms_13; SGroup 9592 4 syms_14;
     AGroup 15027 5 syms_15; SGroup 7990 14 syms_17]);
   (104737, 22, [AGroup 5 1 [sym_ppDirective]; AGroup 15647 1 [anon_sym_LBRACK];
     AGroup 15653 1 [anon_sym_POUND]; AGroup 15667 1 [sym_kSpecialize]; AGroup 15671 1 [sym_kIf];
     AGroup 15673 1 [sym_kInherited]; AGroup 15745 1 [anon_sym_LPAREN];
     AGroup 17076 1 [sym_kString]; SGroup 4095 1 [aux_sym_exprArgs_repeat1];
     SGroup 14362 1 [sym_exprArgs]; AGroup 3 2 syms_5; AGroup 15651 2 syms_6;
     AGroup 15655 2 syms_7; AGroup 15657 2 syms_8; AGroup 15659 2 syms_9; AGroup 15661 2 syms_10;
     AGroup 15669 2 syms_11; SGroup 8129 2 syms_12; SGroup 7100 3 syms_13; SGroup 8456 4 syms_14;
     AGroup 15663 5 syms_15; SGroup 7786 14 syms_17]);
   (104834, 7, [AGroup 5 1 [sym_ppDirective]; AGroup 14827 1 [anon_sym_POUND]; AGroup 3 2 syms_5;
     AGroup 17732 2 syms_6; SGroup 3832 3 syms_13; AGroup 15235 4 syms_25;
     AGroup 15233 39 syms_126]);
   (104901, 22, [AGroup 5 1 [sym_ppDirective]; AGroup 15576 1 [sym_kElse]; AGroup 16071 1 [anon_sym_LBRACK];
     AGroup 16073 1 [anon_sym_LPAREN]; AGroup 16077 1 [anon_sym_POUND];
     AGroup 16091 1 [sym_kSpecialize]; AGroup 16095 1 [sym_kIf]; AGroup 16097 1 [sym_kInherited];
     AGroup 17710 1 [sym_kString]; AGroup 17734 1 [anon_sym_SEMI]; AGroup 3 2 syms_5;
     AGroup 16075 2 syms_6; AGroup 16079 2 syms_7; AGroup 16081 2 syms_8; AGroup 16083 2 syms_9;
     AGroup 16085 2 syms_10; AGroup 16093 2 syms_11; SGroup 8930 2 syms_12;
     SGroup 7257 3 syms_13; SGroup 9542 4 syms_14; AGroup 16087 5 syms_15; SGroup 8310 14 syms_17]);
   (104998, 5, [AGroup 5 1 [sym_ppDirective]; AGroup 3 2 syms_5; AGroup 15439 7 syms_34;
     AGroup 15403 18 syms_36; AGroup 15437 24 syms_125]);
   (105061, 22, [AGroup 5 1 [sym_ppDirective]; AGroup 15011 1 [anon_sym_LBRACK];
     AGroup 15013 1 [anon_sym_LPAREN]; AGroup 15017 1 [anon_sym_POUND];
     AGroup 15029 1 [sym_kSpecialize]; AGroup 15035 1 [sym_kIf]; AGroup 15037 1 [sym_kInherited];
     AGroup 15039 1 [sym_kString]; SGroup 3809 1 [aux_sym_caseLabel_repeat1];
     SGroup 13253 1 [sym_range]; AGroup 3 2 syms_5; AGroup 15015 2 syms_6; AGroup 15019 2 syms_7;
     AGroup 15021 2 syms_8; AGroup 15023 2 syms_9; AGroup 15025 2 syms_10;
     AGroup 15033 2 syms_11; SGroup 8466 2 syms_12; SGroup 7201 3 syms_13; SGroup 9598 4 syms_14;
     AGroup 15027 5 syms_15; SGroup 7990 14 syms_17]);
   (105158, 22, [AGroup 5 1 [sym_ppDirective]; AGroup 15647 1 [anon_sym_LBRACK];
     AGroup 15653 1 [anon_sym_POUND]; AGroup 15667 1 [sym_kSpecialize]; AGroup 15671 1 [sym_kIf];
     AGroup 15673 1 [sym_kInherited]; AGroup 15745 1 [anon_sym_LPAREN];
     AGroup 17076 1 [sym_kString]; SGroup 4095 1 [aux_sym_exprArgs_repeat1];
     SGroup 14926 1 [sym_exprArgs]; AGroup 3 2 syms_5; AGroup 15651 2 syms_6;
     AGroup 15655 2 syms_7; AGroup 15657 2 syms_8; AGroup 15659 2 syms_9; AGroup 15661 2 syms_10;
     AGroup 15669 2 syms_11; SGroup 8129 2 syms_12; SGroup 7100 3 syms_13; SGroup 8456 4 syms_14;
     AGroup 15663 5 syms_15; SGroup 7786 14 syms_17]);
   (105255, 21, [AGroup 5 1 [sym_ppDirective]; AGroup 15647 1 [anon_sym_LBRACK];
     AGroup 15653 1 [anon_sym_POUND]; AGroup 15667 1 [sym_kSpecialize]; AGroup 15671 1 [sym_kIf];
     AGroup 15673 1 [sym_kInherited]; AGroup 15675 1 [sym_kString];
     AGroup 15745 1 [anon_sym_LPAREN]; AGroup 3 2 syms_5; AGroup 14765 2 syms_129;
     AGroup 15651 2 syms_6; AGroup 15655 2 syms_7; AGroup 15657 2 syms_8; AGroup 15659 2 syms_9;
     AGroup 15661 2 syms_10; AGroup 15669 2 syms_11; SGroup 8129 2 syms_12;
     SGroup 7100 3 syms_13; SGroup 9694 4 syms_14; AGroup 15663 5 syms_15; SGroup 7786 14 syms_17]);
   (105350, 21, [AGroup 5 1 [sym_ppDirective]; AGroup 15677 1 [anon_sym_LBRACK];
     AGroup 15679 1 [anon_sym_LPAREN]; AGroup 15683 1 [anon_sym_POUND];
     AGroup 15697 1 [sym_kSpecialize]; AGroup 15701 1 [sym_kIf]; AGroup 15703 1 [sym_kInherited];
     AGroup 17206 1 [sym_kString]; AGroup 3 2 syms_5; AGroup 14747 2 syms_44;
     AGroup 15681 2 syms_6; AGroup 15685 2 syms_7; AGroup 15687 2 syms_8; AGroup 15689 2 syms_9;
     AGroup 15691 2 syms_10; AGroup 15699 2 syms_11; SGroup 8792 2 syms_12;
     SGroup 7321 3 syms_13; SGroup 9772 4 syms_14; AGroup 15693 5 syms_15; SGroup 8443 14 syms_17]);
   (105445, 4, [AGroup 5 1 [sym_ppDirective]; AGroup 3 2 syms_5; AGroup 15355 7 syms_34;
     AGroup 15353 42 syms_130]);
   (105506, 22, [AGroup 5 1 [sym_ppDirective]; AGroup 15011 1 [anon_sym_LBRACK];
     AGroup 15013 1 [anon_sym_LPAREN]; AGroup 15017 1 [anon_sym_POUND];
     AGroup 15029 1 [sym_kSpecialize]; AGroup 15035 1 [sym_kIf]; AGroup 15037 1 [sym_kInherited];
     AGroup 15039 1 [sym_kString]; SGroup 3809 1 [aux_sym_caseLabel_repeat1];
     SGroup 13565 1 [sym_range]; AGroup 3 2 syms_5; AGroup 15015 2 syms_6; AGroup 15019 2 syms_7;
     AGroup 15021 2 syms_8; AGroup 15023 2 syms_9; AGroup 15025 2 syms_10;
     AGroup 15033 2 syms_11; SGroup 8466 2 syms_12; SGroup 7201 3 syms_13; SGroup 9606 4 syms_14;
     AGroup 15027 5 syms_15; SGroup 7990 14 syms_17]);
   (105603, 22, [AGroup 5 1 [sym_ppDirective]; AGroup 15647 1 [anon_sym_LBRACK];
     AGroup 15653 1 [anon_sym_POUND]; AGroup 15667 1 [sym_kSpecialize]; AGroup 15671 1 [sym_kIf];
     AGroup 15673 1 [sym_kInherited]; AGroup 15745 1 [anon_sym_LPAREN];
     AGroup 17076 1 [sym_kString]; SGroup 4095 1 [aux_sym_exprArgs_repeat1];
     SGroup 15290 1 [sym_exprArgs]; AGroup 3 2 syms_5; AGroup 15651 2 syms_6;
     AGroup 15655 2 syms_7; AGroup 15657 2 syms_8; AGroup 15659 2 syms_9; AGroup 15661 2 syms_10;
     AGroup 15669 2 syms_11; SGroup 8129 2 syms_12; SGroup 7100 3 syms_13; SGroup 8456 4 syms_14;
     AGroup 15663 5 syms_15; SGroup 7786 14 syms_17]);
   (105700, 22, [AGroup 5 1 [sym_ppDirective]; AGroup 15011 1 [anon_sym_LBRACK];
     AGroup 15013 1 [anon_sym_LPAREN]; AGroup 15017 1 [anon_sym_POUND];
     AGroup 15029 1 [sym_kSpecialize]; AGroup 15035 1 [sym_kIf]; AGroup 15037 1 [sym_kInherited];
     AGroup 15039 1 [sym_kString]; SGroup 3809 1 [aux_sym_caseLabel_repeat1];
     SGroup 13806 1 [sym_range]; AGroup 3 2 syms_5; AGroup 15015 2 syms_6; AGroup 15019 2 syms_7;
     AGroup 15021 2 syms_8; AGroup 15023 2 syms_9; AGroup 15025 2 syms_10;
     AGroup 15033 2 syms_11; SGroup 8466 2 syms_12; SGroup 7201 3 syms_13; SGroup 9464 4 syms_14;
     AGroup 15027 5 syms_15; SGroup 7990 14 syms_17]);
   (105797, 22, [AGroup 5 1 [sym_ppDirective]; AGroup 15576 1 [sym_kElse]; AGroup 16071 1 [anon_sym_LBRACK];
     AGroup 16073 1 [anon_sym_LPAREN]; AGroup 16077 1 [anon_sym_POUND];
     AGroup 16091 1 [sym_kSpecialize]; AGroup 16095 1 [sym_kIf]; AGroup 16097 1 [sym_kInherited];
     AGroup 17710 1 [sym_kString]; AGroup 17736 1 [anon_sym_SEMI]; AGroup 3 2 syms_5;
     AGroup 16075 2 syms_6; AGroup 16079 2 syms_7; AGroup 16081 2 syms_8; AGroup 16083 2 syms_9;
     AGroup 16085 2 syms_10; AGroup 16093 2 syms_11; SGroup 8930 2 syms_12;
     SGroup 7257 3 syms_13; SGroup 9571 4 syms_14; AGroup 16087 5 syms_15; SGroup 8310 14 syms_17]);
   (105894, 22, [AGroup 5 1 [sym_ppDirective]; AGroup 15647 1 [anon_sym_LBRACK];
     AGroup 15653 1 [anon_sym_POUND]; AGroup 15667 1 [sym_kSpecialize]; AGroup 15671 1 [sym_kIf];
     AGroup 15673 1 [sym_kInherited]; AGroup 15745 1 [anon_sym_LPAREN];
     AGroup 17076 1 [sym_kString]; SGroup 4095 1 [aux_sym_exprArgs_repeat1];
     SGroup 15722 1 [sym_exprArgs]; AGroup 3 2 syms_5; AGroup 15651 2 syms_6;
     AGroup 15655 2 syms_7; AGroup 15657 2 syms_8; AGroup 15659 2 syms_9; AGroup 15661 2 syms_10;
     AGroup 15669 2 syms_11; SGroup 8129 2 syms_12; SGroup 7100 3 syms_13; SGroup 8456 4 syms_14;
     AGroup 15663 5 syms_15; SGroup 7786 14 syms_17]);
   (105991, 22, [AGroup 5 1 [sym_ppDirective]; AGroup 15011 1 [anon_sym_LBRACK];
     AGroup 15013 1 [anon_sym_LPAREN]; AGroup 15017 1 [anon_sym_POUND];
     AGroup 15029 1 [sym_kSpecialize]; AGroup 15035 1 [sym_kIf]; AGroup 15037 1 [sym_kInherited];
     AGroup 15039 1 [sym_kString]; SGroup 3809 1 [aux_sym_caseLabel_repeat1];
     SGroup 13750 1 [sym_range]; AGroup 3 2 syms_5; AGroup 15015 2 syms_6; AGroup 15019 2 syms_7;
     AGroup 15021 2 syms_8; AGroup 15023 2 syms_9; AGroup 15025 2 syms_10;
     AGroup 15033 2 syms_11; SGroup 8466 2 syms_12; SGroup 7201 3 syms_13; SGroup 9613 4 syms_14;
     AGroup 15027 5 syms_15; SGroup 7990 14 syms_17]);
   (106088, 22, [AGroup 5 1 [sym_ppDirective]; AGroup 15647 1 [anon_sym_LBRACK];
     AGroup 15653 1 [anon_sym_POUND]; AGroup 15667 1 [sym_kSpecialize]; AGroup 15671 1 [sym_kIf];
     AGroup 15673 1 [sym_kInherited]; AGroup 15745 1 [anon_sym_LPAREN];
     AGroup 17076 1 [sym_kString]; SGroup 4095 1 [aux_sym_exprArgs_repeat1];
     SGroup 15604 1 [sym_exprArgs]; AGroup 3 2 syms_5; AGroup 15651 2 syms_6;
     AGroup 15655 2 syms_7; AGroup 15657 2 syms_8; AGroup 15659 2 syms_9; AGroup 15661 2 syms_10;
     AGroup 15669 2 syms_11; SGroup 8129 2 syms_12; SGroup 7100 3 syms_13; SGroup 8456 4 syms_14;
     AGroup 15663 5 syms_15; SGroup 7786 14 syms_17]);
   (106185, 5, [AGroup 5 1 [sym_ppDirective]; AGroup 3 2 syms_5; AGroup 15488 7 syms_34;
     AGroup 15403 18 syms_36; AGroup 15486 24 syms_125]);
   (106248, 5, [AGroup 5 1 [sym_ppDirective]; AGroup 3 2 syms_5; AGroup 15401 7 syms_34;
     AGroup 15403 18 syms_36; AGroup 15399 24 syms_125]);
   (106311, 4, [AGroup 5 1 [sym_ppDirective]; AGroup 3 2 syms_5; AGroup 15355 7 syms_34;
     AGroup 15353 42 syms_131]);
   (106372, 22, [AGroup 5 1 [sym_ppDirective]; AGroup 15011 1 [anon_sym_LBRACK];
     AGroup 15013 1 [anon_sym_LPAREN]; AGroup 15017 1 [anon_sym_POUND];
     AGroup 15029 1 [sym_kSpecialize]; AGroup 15035 1 [sym_kIf]; AGroup 15037 1 [sym_kInherited];
     AGroup 15039 1 [sym_kString]; SGroup 3809 1 [aux_sym_caseLabel_repeat1];
     SGroup 13967 1 [sym_range]; AGroup 3 2 syms_5; AGroup 15015 2 syms_6; AGroup 15019 2 syms_7;
     AGroup 15021 2 syms_8; AGroup 15023 2 syms_9; AGroup 15025 2 syms_10;
     AGroup 15033 2 syms_11; SGroup 8466 2 syms_12; SGroup 7201 3 syms_13; SGroup 9578 4 syms_14;
     AGroup 15027 5 syms_15; SGroup 7990 14 syms_17])
  ].

(** States 3859 to 3958. *)
Definition small_runs_3859 : list small_run :=
  [
   (106469, 22, [AGroup 5 1 [sym_ppDirective]; AGroup 15647 1 [anon_sym_LBRACK];
     AGroup 15653 1 [anon_sym_POUND]; AGroup 15667 1 [sym_kSpecialize]; AGroup 15671 1 [sym_kIf];
     AGroup 15673 1 [sym_kInherited]; AGroup 15745 1 [anon_sym_LPAREN];
     AGroup 17076 1 [sym_kString]; SGroup 4095 1 [aux_sym_exprArgs_repeat1];
     SGroup 15964 1 [sym_exprArgs]; AGroup 3 2 syms_5; AGroup 15651 2 syms_6;
     AGroup 15655 2 syms_7; AGroup 15657 2 syms_8; AGroup 15659 2 syms_9; AGroup 15661 2 syms_10;
     AGroup 15669 2 syms_11; SGroup 8129 2 syms_12; SGroup 7100 3 syms_13; SGroup 8456 4 syms_14;
     AGroup 15663 5 syms_15; SGroup 7786 14 syms_17]);
   (106566, 5, [AGroup 5 1 [sym_ppDirective]; AGroup 3 2 syms_5; AGroup 15504 7 syms_34;
     AGroup 15403 18 syms_36; AGroup 15502 24 syms_125]);
   (106629, 5, [AGroup 5 1 [sym_ppDirective]; AGroup 3 2 syms_5; AGroup 15484 7 syms_34;
     AGroup 15403 18 syms_36; AGroup 15482 24 syms_125]);
   (106692, 22, [AGroup 5 1 [sym_ppDirective]; AGroup 15647 1 [anon_sym_LBRACK];
     AGroup 15653 1 [anon_sym_POUND]; AGroup 15667 1 [sym_kSpecialize];
     AGroup 15673 1 [sym_kInherited]; AGroup 15675 1 [sym_kString];
     AGroup 15745 1 [anon_sym_LPAREN]; AGroup 15755 1 [sym_kIf];
     AGroup 17738 1 [anon_sym_RBRACK]; SGroup 4134 1 [aux_sym_rttiAttributes_repeat1];
     AGroup 3 2 syms_5; AGroup 15651 2 syms_6; AGroup 15655 2 syms_7; AGroup 15657 2 syms_8;
     AGroup 15669 2 syms_11; AGroup 15747 2 syms_9; AGroup 15749 2 syms_10;
     SGroup 8129 2 syms_12; SGroup 7100 3 syms_13; SGroup 10347 4 syms_14;
     AGroup 17740 5 syms_15; SGroup 8662 14 syms_17]);
   (106789, 22, [AGroup 5 1 [sym_ppDirective]; AGroup 15011 1 [anon_sym_LBRACK];
     AGroup 15013 1 [anon_sym_LPAREN]; AGroup 15017 1 [anon_sym_POUND];
     AGroup 15029 1 [sym_kSpecialize]; AGroup 15035 1 [sym_kIf]; AGroup 15037 1 [sym_kInherited];
     AGroup 15039 1 [sym_kString]; SGroup 3809 1 [aux_sym_caseLabel_repeat1];
     SGroup 13786 1 [sym_range]; AGroup 3 2 syms_5; AGroup 15015 2 syms_6; AGroup 15019 2 syms_7;
     AGroup 15021 2 syms_8; AGroup 15023 2 syms_9; AGroup 15025 2 syms_10;
     AGroup 15033 2 syms_11; SGroup 8466 2 syms_12; SGroup 7201 3 syms_13; SGroup 9467 4 syms_14;
     AGroup 15027 5 syms_15; SGroup 7990 14 syms_17]);
   (106886, 22, [AGroup 5 1 [sym_ppDirective]; AGroup 15647 1 [anon_sym_LBRACK];
     AGroup 15653 1 [anon_sym_POUND]; AGroup 15667 1 [sym_kSpecialize]; AGroup 15671 1 [sym_kIf];
     AGroup 15673 1 [sym_kInherited]; AGroup 15745 1 [anon_sym_LPAREN];
     AGroup 17076 1 [sym_kString]; SGroup 4095 1 [aux_sym_exprArgs_repeat1];
     SGroup 14304 1 [sym_exprArgs]; AGroup 3 2 syms_5; AGroup 15651 2 syms_6;
     AGroup 15655 2 syms_7; AGroup 15657 2 syms_8; AGroup 15659 2 syms_9; AGroup 15661 2 syms_10;
     AGroup 15669 2 syms_11; SGroup 8129 2 syms_12; SGroup 7100 3 syms_13; SGroup 8456 4 syms_14;
     AGroup 15663 5 syms_15; SGroup 7786 14 syms_17]);
   (106983, 22, [AGroup 5 1 [sym_ppDirective]; AGroup 15647 1 [anon_sym_LBRACK];
     AGroup 15653 1 [anon_sym_POUND]; AGroup 15667 1 [sym_kSpecialize]; AGroup 15671 1 [sym_kIf];
     AGroup 15673 1 [sym_kInherited]; AGroup 15745 1 [anon_sym_LPAREN];
     AGroup 17076 1 [sym_kString]; SGroup 4095 1 [aux_sym_exprArgs_repeat1];
     SGroup 14445 1 [sym_exprArgs]; AGroup 3 2 syms_5; AGroup 15651 2 syms_6;
     AGroup 15655 2 syms_7; AGroup 15657 2 syms_8; AGroup 15659 2 syms_9; AGroup 15661 2 syms_10;
     AGroup 15669 2 syms_11; SGroup 8129 2 syms_12; SGroup 7100 3 syms_13; SGroup 8456 4 syms_14;
     AGroup 15663 5 syms_15; SGroup 7786 14 syms_17]);
   (107080, 22, [AGroup 5 1 [sym_ppDirective]; AGroup 15576 1 [sym_kElse]; AGroup 16071 1 [anon_sym_LBRACK];
     AGroup 16073 1 [anon_sym_LPAREN]; AGroup 16077 1 [anon_sym_POUND];
     AGroup 16091 1 [sym_kSpecialize]; AGroup 16095 1 [sym_kIf]; AGroup 16097 1 [sym_kInherited];
     AGroup 17710 1 [sym_kString]; AGroup 17742 1 [anon_sym_SEMI]; AGroup 3 2 syms_5;
     AGroup 16075 2 syms_6; AGroup 16079 2 syms_7; AGroup 16081 2 syms_8; AGroup 16083 2 syms_9;
     AGroup 16085 2 syms_10; AGroup 16093 2 syms_11; SGroup 8930 2 syms_12;
     SGroup 7257 3 syms_13; SGroup 9384 4 syms_14; AGroup 16087 5 syms_15; SGroup 8310 14 syms_17]);
   (107177, 21, [AGroup 5 1 [sym_ppDirective]; AGroup 15647 1 [anon_sym_LBRACK];
     AGroup 15653 1 [anon_sym_POUND]; AGroup 15667 1 [sym_kSpecialize];
     AGroup 15673 1 [sym_kInherited]; AGroup 15675 1 [sym_kString];
     AGroup 15745 1 [anon_sym_LPAREN]; AGroup 15755 1 [sym_kIf]; AGroup 3 2 syms_5;
     AGroup 15651 2 syms_6; AGroup 15655 2 syms_7; AGroup 15657 2 syms_8; AGroup 15669 2 syms_11;
     AGroup 15747 2 syms_9; AGroup 15749 2 syms_10; AGroup 17204 2 syms_132;
     SGroup 8129 2 syms_12; SGroup 7100 3 syms_13; SGroup 9773 4 syms_14; AGroup 15751 5 syms_15;
     SGroup 8464 14 syms_17]);
   (107272, 22, [AGroup 5 1 [sym_ppDirective]; AGroup 15011 1 [anon_sym_LBRACK];
     AGroup 15013 1 [anon_sym_LPAREN]; AGroup 15017 1 [anon_sym_POUND];
     AGroup 15029 1 [sym_kSpecialize]; AGroup 15035 1 [sym_kIf]; AGroup 15037 1 [sym_kInherited];
     AGroup 15039 1 [sym_kString]; SGroup 3809 1 [aux_sym_caseLabel_repeat1];
     SGroup 14050 1 [sym_range]; AGroup 3 2 syms_5; AGroup 15015 2 syms_6; AGroup 15019 2 syms_7;
     AGroup 15021 2 syms_8; AGroup 15023 2 syms_9; AGroup 15025 2 syms_10;
     AGroup 15033 2 syms_11; SGroup 8466 2 syms_12; SGroup 7201 3 syms_13; SGroup 9566 4 syms_14;
     AGroup 15027 5 syms_15; SGroup 7990 14 syms_17]);
   (107369, 22, [AGroup 5 1 [sym_ppDirective]; AGroup 15647 1 [anon_sym_LBRACK];
     AGroup 15653 1 [anon_sym_POUND]; AGroup 15667 1 [sym_kSpecialize]; AGroup 15671 1 [sym_kIf];
     AGroup 15673 1 [sym_kInherited]; AGroup 15745 1 [anon_sym_LPAREN];
     AGroup 17076 1 [sym_kString]; SGroup 4095 1 [aux_sym_exprArgs_repeat1];
     SGroup 14519 1 [sym_exprArgs]; AGroup 3 2 syms_5; AGroup 15651 2 syms_6;
     AGroup 15655 2 syms_7; AGroup 15657 2 syms_8; AGroup 15659 2 syms_9; AGroup 15661 2 syms_10;
     AGroup 15669 2 syms_11; SGroup 8129 2 syms_12; SGroup 7100 3 syms_13; SGroup 8456 4 syms_14;
     AGroup 15663 5 syms_15; SGroup 7786 14 syms_17]);
   (107466, 29, [AGroup 5 1 [sym_ppDirective]; AGroup 14853 1 [anon_sym_POUND];
     AGroup 15299 1 [anon_sym_LPAREN]; AGroup 15301 1 [sym_kHat];
     AGroup 15303 1 [sym_ppFragmentExpr]; AGroup 15305 1 [sym_identifier];
     AGroup 15307 1 [sym_kSpecialize]; AGroup 15309 1 [sym_kReference];
     AGroup 15311 1 [sym_kArray]; AGroup 15313 1 [sym_kClass]; AGroup 15317 1 [sym_kFile];
     AGroup 15321 1 [sym_kPacked]; AGroup 15323 1 [sym_kRecord]; AGroup 15325 1 [sym_kSet];
     AGroup 15327 1 [sym_kString]; SGroup 10605 1 [sym__subRangeUnary];
     SGroup 10614 1 [sym__subRangeBinary]; SGroup 10620 1 [sym__subRangeCall]; AGroup 3 2 syms_5;
     AGroup 14851 2 syms_6; AGroup 14855 2 syms_7; AGroup 14857 2 syms_8; AGroup 14861 2 syms_9;
     AGroup 15319 2 syms_11; SGroup 10647 2 syms_12; SGroup 10482 3 syms_13;
     SGroup 11297 3 syms_30; SGroup 10560 4 syms_31; SGroup 11926 10 syms_32]);
   (107577, 22, [AGroup 5 1 [sym_ppDirective]; AGroup 15576 1 [sym_kElse]; AGroup 16071 1 [anon_sym_LBRACK];
     AGroup 16073 1 [anon_sym_LPAREN]; AGroup 16077 1 [anon_sym_POUND];
     AGroup 16091 1 [sym_kSpecialize]; AGroup 16095 1 [sym_kIf]; AGroup 16097 1 [sym_kInherited];
     AGroup 17010 1 [anon_sym_SEMI]; AGroup 17710 1 [sym_kString]; AGroup 3 2 syms_5;
     AGroup 16075 2 syms_6; AGroup 16079 2 syms_7; AGroup 16081 2 syms_8; AGroup 16083 2 syms_9;
     AGroup 16085 2 syms_10; AGroup 16093 2 syms_11; SGroup 8930 2 syms_12;
     SGroup 7257 3 syms_13; SGroup 9593 4 syms_14; AGroup 16087 5 syms_15; SGroup 8310 14 syms_17]);
   (107674, 5, [AGroup 5 1 [sym_ppDirective]; AGroup 3 2 syms_5; AGroup 15492 7 syms_34;
     AGroup 15403 18 syms_36; AGroup 15490 24 syms_128]);
   (107737, 22, [AGroup 5 1 [sym_ppDirective]; AGroup 15011 1 [anon_sym_LBRACK];
     AGroup 15013 1 [anon_sym_LPAREN]; AGroup 15017 1 [anon_sym_POUND];
     AGroup 15029 1 [sym_kSpecialize]; AGroup 15035 1 [sym_kIf]; AGroup 15037 1 [sym_kInherited];
     AGroup 15039 1 [sym_kString]; SGroup 3809 1 [aux_sym_caseLabel_repeat1];
     SGroup 13433 1 [sym_range]; AGroup 3 2 syms_5; AGroup 15015 2 syms_6; AGroup 15019 2 syms_7;
     AGroup 15021 2 syms_8; AGroup 15023 2 syms_9; AGroup 15025 2 syms_10;
     AGroup 15033 2 syms_11; SGroup 8466 2 syms_12; SGroup 7201 3 syms_13; SGroup 9390 4 syms_14;
     AGroup 15027 5 syms_15; SGroup 7990 14 syms_17]);
   (107834, 22, [AGroup 5 1 [sym_ppDirective]; AGroup 15647 1 [anon_sym_LBRACK];
     AGroup 15653 1 [anon_sym_POUND]; AGroup 15667 1 [sym_kSpecialize]; AGroup 15671 1 [sym_kIf];
     AGroup 15673 1 [sym_kInherited]; AGroup 15745 1 [anon_sym_LPAREN];
     AGroup 17076 1 [sym_kString]; SGroup 4095 1 [aux_sym_exprArgs_repeat1];
     SGroup 14777 1 [sym_exprArgs]; AGroup 3 2 syms_5; AGroup 15651 2 syms_6;
     AGroup 15655 2 syms_7; AGroup 15657 2 syms_8; AGroup 15659 2 syms_9; AGroup 15661 2 syms_10;
     AGroup 15669 2 syms_11; SGroup 8129 2 syms_12; SGroup 7100 3 syms_13; SGroup 8456 4 syms_14;
     AGroup 15663 5 syms_15; SGroup 7786 14 syms_17]);
   (107931, 4, [AGroup 5 1 [sym_ppDirective]; AGroup 3 2 syms_5; AGroup 15295 7 syms_34;
     AGroup 15293 42 syms_130]);
   (107992, 3, [AGroup 5 1 [sym_ppDirective]; AGroup 3 2 syms_5; AGroup 9850 49 syms_127]);
   (108051, 22, [AGroup 5 1 [sym_ppDirective]; AGroup 15011 1 [anon_sym_LBRACK];
     AGroup 15013 1 [anon_sym_LPAREN]; AGroup 15017 1 [anon_sym_POUND];
     AGroup 15029 1 [sym_kSpecialize]; AGroup 15035 1 [sym_kIf]; AGroup 15037 1 [sym_kInherited];
     AGroup 15039 1 [sym_kString]; SGroup 3809 1 [aux_sym_caseLabel_repeat1];
     SGroup 14027 1 [sym_range]; AGroup 3 2 syms_5; AGroup 15015 2 syms_6; AGroup 15019 2 syms_7;
     AGroup 15021 2 syms_8; AGroup 15023 2 syms_9; AGroup 15025 2 syms_10;
     AGroup 15033 2 syms_11; SGroup 8466 2 syms_12; SGroup 7201 3 syms_13; SGroup 9435 4 syms_14;
     AGroup 15027 5 syms_15; SGroup 7990 14 syms_17]);
   (108148, 22, [AGroup 5 1 [sym_ppDirective]; AGroup 15647 1 [anon_sym_LBRACK];
     AGroup 15653 1 [anon_sym_POUND]; AGroup 15667 1 [sym_kSpecialize]; AGroup 15671 1 [sym_kIf];
     AGroup 15673 1 [sym_kInherited]; AGroup 15745 1 [anon_sym_LPAREN];
     AGroup 17076 1 [sym_kString]; SGroup 4095 1 [aux_sym_exprArgs_repeat1];
     SGroup 14938 1 [sym_exprArgs]; AGroup 3 2 syms_5; AGroup 15651 2 syms_6;
     AGroup 15655 2 syms_7; AGroup 15657 2 syms_8; AGroup 15659 2 syms_9; AGroup 15661 2 syms_10;
     AGroup 15669 2 syms_11; SGroup 8129 2 syms_12; SGroup 7100 3 syms_13; SGroup 8456 4 syms_14;
     AGroup 15663 5 syms_15; SGroup 7786 14 syms_17]);
   (108245, 21, [AGroup 5 1 [sym_ppDirective]; AGroup 15677 1 [anon_sym_LBRACK];
     AGroup 15679 1 [anon_sym_LPAREN]; AGroup 15683 1 [anon_sym_POUND];
     AGroup 15697 1 [sym_kSpecialize]; AGroup 15701 1 [sym_kIf]; AGroup 15703 1 [sym_kInherited];
     AGroup 17206 1 [sym_kString]; AGroup 3 2 syms_5; AGroup 15179 2 syms_44;
     AGroup 15681 2 syms_6; AGroup 15685 2 syms_7; AGroup 15687 2 syms_8; AGroup 15689 2 syms_9;
     AGroup 15691 2 syms_10; AGroup 15699 2 syms_11; SGroup 8792 2 syms_12;
     SGroup 7321 3 syms_13; SGroup 9728 4 syms_14; AGroup 15693 5 syms_15; SGroup 8443 14 syms_17]);
   (108340, 3, [AGroup 5 1 [sym_ppDirective]; AGroup 3 2 syms_5; AGroup 9868 49 syms_127]);
   (108399, 22, [AGroup 5 1 [sym_ppDirective]; AGroup 15011 1 [anon_sym_LBRACK];
     AGroup 15013 1 [anon_sym_LPAREN]; AGroup 15017 1 [anon_sym_POUND];
     AGroup 15029 1 [sym_kSpecialize]; AGroup 15035 1 [sym_kIf]; AGroup 15037 1 [sym_kInherited];
     AGroup 15039 1 [sym_kString]; SGroup 3809 1 [aux_sym_caseLabel_repeat1];
     SGroup 13266 1 [sym_range]; AGroup 3 2 syms_5; AGroup 15015 2 syms_6; AGroup 15019 2 syms_7;
     AGroup 15021 2 syms_8; AGroup 15023 2 syms_9; AGroup 15025 2 syms_10;
     AGroup 15033 2 syms_11; SGroup 8466 2 syms_12; SGroup 7201 3 syms_13; SGroup 9455 4 syms_14;
     AGroup 15027 5 syms_15; SGroup 7990 14 syms_17]);
   (108496, 22, [AGroup 5 1 [sym_ppDirective]; AGroup 15647 1 [anon_sym_LBRACK];
     AGroup 15653 1 [anon_sym_POUND]; AGroup 15667 1 [sym_kSpecialize]; AGroup 15671 1 [sym_kIf];
     AGroup 15673 1 [sym_kInherited]; AGroup 15745 1 [anon_sym_LPAREN];
     AGroup 17076 1 [sym_kString]; SGroup 4095 1 [aux_sym_exprArgs_repeat1];
     SGroup 15134 1 [sym_exprArgs]; AGroup 3 2 syms_5; AGroup 15651 2 syms_6;
     AGroup 15655 2 syms_7; AGroup 15657 2 syms_8; AGroup 15659 2 syms_9; AGroup 15661 2 syms_10;
     AGroup 15669 2 syms_11; SGroup 8129 2 syms_12; SGroup 7100 3 syms_13; SGroup 8456 4 syms_14;
     AGroup 15663 5 syms_15; SGroup 7786 14 syms_17]);
   (108593, 3, [AGroup 5 1 [sym_ppDirective]; AGroup 3 2 syms_5; AGroup 9822 49 syms_127]);
   (108652, 22, [AGroup 5 1 [sym_ppDirective]; AGroup 15576 1 [sym_kElse]; AGroup 16071 1 [anon_sym_LBRACK];
     AGroup 16073 1 [anon_sym_LPAREN]; AGroup 16077 1 [anon_sym_POUND];
     AGroup 16091 1 [sym_kSpecialize]; AGroup 16095 1 [sym_kIf]; AGroup 16097 1 [sym_kInherited];
     AGroup 17710 1 [sym_kString]; AGroup 17744 1 [anon_sym_SEMI]; AGroup 3 2 syms_5;
     AGroup 16075 2 syms_6; AGroup 16079 2 syms_7; AGroup 16081 2 syms_8; AGroup 16083 2 syms_9;
     AGroup 16085 2 syms_10; AGroup 16093 2 syms_11; SGroup 8930 2 syms_12;
     SGroup 7257 3 syms_13; SGroup 9490 4 syms_14; AGroup 16087 5 syms_15; SGroup 8310 14 syms_17]);
   (108749, 3, [AGroup 5 1 [sym_ppDirective]; AGroup 3 2 syms_5; AGroup 9842 49 syms_127]);
   (108808, 22, [AGroup 5 1 [sym_ppDirective]; AGroup 15011 1 [anon_sym_LBRACK];
     AGroup 15013 1 [anon_sym_LPAREN]; AGroup 15017 1 [anon_sym_POUND];
     AGroup 15029 1 [sym_kSpecialize]; AGroup 15035 1 [sym_kIf]; AGroup 15037 1 [sym_kInherited];
     AGroup 15039 1 [sym_kString]; SGroup 3809 1 [aux_sym_caseLabel_repeat1];
     SGroup 13657 1 [sym_range]; AGroup 3 2 syms_5; AGroup 15015 2 syms_6; AGroup 15019 2 syms_7;
     AGroup 15021 2 syms_8; AGroup 15023 2 syms_9; AGroup 15025 2 syms_10;
     AGroup 15033 2 syms_11; SGroup 8466 2 syms_12; SGroup 7201 3 syms_13; SGroup 9476 4 syms_14;
     AGroup 15027 5 syms_15; SGroup 7990 14 syms_17]);
   (108905, 22, [AGroup 5 1 [sym_ppDirective]; AGroup 15647 1 [anon_sym_LBRACK];
     AGroup 15653 1 [anon_sym_POUND]; AGroup 15667 1 [sym_kSpecialize]; AGroup 15671 1 [sym_kIf];
     AGroup 15673 1 [sym_kInherited]; AGroup 15745 1 [anon_sym_LPAREN];
     AGroup 17076 1 [sym_kString]; SGroup 4095 1 [aux_sym_exprArgs_repeat1];
     SGroup 15336 1 [sym_exprArgs]; AGroup 3 2 syms_5; AGroup 15651 2 syms_6;
     AGroup 15655 2 syms_7; AGroup 15657 2 syms_8; AGroup 15659 2 syms_9; AGroup 15661 2 syms_10;
     AGroup 15669 2 syms_11; SGroup 8129 2 syms_12; SGroup 7100 3 syms_13; SGroup 8456 4 syms_14;
     AGroup 15663 5 syms_15; SGroup 7786 14 syms_17]);
   (109002, 21, [AGroup 5 1 [sym_ppDirective]; AGroup 15677 1 [anon_sym_LBRACK];
     AGroup 15679 1 [anon_sym_LPAREN]; AGroup 15683 1 [anon_sym_POUND];
     AGroup 15697 1 [sym_kSpecialize]; AGroup 15701 1 [sym_kIf]; AGroup 15703 1 [sym_kInherited];
     AGroup 17206 1 [sym_kString]; AGroup 3 2 syms_5; AGroup 15257 2 syms_44;
     AGroup 15681 2 syms_6; AGroup 15685 2 syms_7; AGroup 15687 2 syms_8; AGroup 15689 2 syms_9;
     AGroup 15691 2 syms_10; AGroup 15699 2 syms_11; SGroup 8792 2 syms_12;
     SGroup 7321 3 syms_13; SGroup 9692 4 syms_14; AGroup 15693 5 syms_15; SGroup 8443 14 syms_17]);
   (109097, 22, [AGroup 5 1 [sym_ppDirective]; AGroup 15011 1 [anon_sym_LBRACK];
     AGroup 15013 1 [anon_sym_LPAREN]; AGroup 15017 1 [anon_sym_POUND];
     AGroup 15029 1 [sym_kSpecialize]; AGroup 15035 1 [sym_kIf]; AGroup 15037 1 [sym_kInherited];
     AGroup 15039 1 [sym_kString]; SGroup 3809 1 [aux_sym_caseLabel_repeat1];
     SGroup 13754 1 [sym_range]; AGroup 3 2 syms_5; AGroup 15015 2 syms_6; AGroup 15019 2 syms_7;
     AGroup 15021 2 syms_8; AGroup 15023 2 syms_9; AGroup 15025 2 syms_10;
     AGroup 15033 2 syms_11; SGroup 8466 2 syms_12; SGroup 7201 3 syms_13; SGroup 9439 4 syms_14;
     AGroup 15027 5 syms_15; SGroup 7990 14 syms_17]);
   (109194, 22, [AGroup 5 1 [sym_ppDirective]; AGroup 15011 1 [anon_sym_LBRACK];
     AGroup 15013 1 [anon_sym_LPAREN]; AGroup 15017 1 [anon_sym_POUND];
     AGroup 15029 1 [sym_kSpecialize]; AGroup 15035 1 [sym_kIf]; AGroup 15037 1 [sym_kInherited];
     AGroup 15039 1 [sym_kString]; SGroup 3809 1 [aux_sym_caseLabel_repeat1];
     SGroup 14060 1 [sym_range]; AGroup 3 2 syms_5; AGroup 15015 2 syms_6; AGroup 15019 2 syms_7;
     AGroup 15021 2 syms_8; AGroup 15023 2 syms_9; AGroup 15025 2 syms_10;
     AGroup 15033 2 syms_11; SGroup 8466 2 syms_12; SGroup 7201 3 syms_13; SGroup 9494 4 syms_14;
     AGroup 15027 5 syms_15; SGroup 7990 14 syms_17]);
   (109291, 22, [AGroup 5 1 [sym_ppDirective]; AGroup 15647 1 [anon_sym_LBRACK];
     AGroup 15653 1 [anon_sym_POUND]; AGroup 15667 1 [sym_kSpecialize]; AGroup 15671 1 [sym_kIf];
     AGroup 15673 1 [sym_kInherited]; AGroup 15745 1 [anon_sym_LPAREN];
     AGroup 17076 1 [sym_kString]; SGroup 4095 1 [aux_sym_exprArgs_repeat1];
     SGroup 15516 1 [sym_exprArgs]; AGroup 3 2 syms_5; AGroup 15651 2 syms_6;
     AGroup 15655 2 syms_7; AGroup 15657 2 syms_8; AGroup 15659 2 syms_9; AGroup 15661 2 syms_10;
     AGroup 15669 2 syms_11; SGroup 8129 2 syms_12; SGroup 7100 3 syms_13; SGroup 8456 4 syms_14;
     AGroup 15663 5 syms_15; SGroup 7786 14 syms_17]);
   (109388, 22, [AGroup 5 1 [sym_ppDirective]; AGroup 15647 1 [anon_sym_LBRACK];
     AGroup 15653 1 [anon_sym_POUND]; AGroup 15667 1 [sym_kSpecialize];
     AGroup 15673 1 [sym_kInherited]; AGroup 15675 1 [sym_kString];
     AGroup 15745 1 [anon_sym_LPAREN]; AGroup 15755 1 [sym_kIf];
     AGroup 17746 1 [anon_sym_RBRACK]; SGroup 4105 1 [aux_sym_rttiAttributes_repeat1];
     AGroup 3 2 syms_5; AGroup 15651 2 syms_6; AGroup 15655 2 syms_7; AGroup 15657 2 syms_8;
     AGroup 15669 2 syms_11; AGroup 15747 2 syms_9; AGroup 15749 2 syms_10;
     SGroup 8129 2 syms_12; SGroup 7100 3 syms_13; SGroup 10347 4 syms_14;
     AGroup 17748 5 syms_15; SGroup 8609 14 syms_17]);
   (109485, 22, [AGroup 5 1 [sym_ppDirective]; AGroup 15011 1 [anon_sym_LBRACK];
     AGroup 15013 1 [anon_sym_LPAREN]; AGroup 15017 1 [anon_sym_POUND];
     AGroup 15029 1 [sym_kSpecialize]; AGroup 15035 1 [sym_kIf]; AGroup 15037 1 [sym_kInherited];
     AGroup 15039 1 [sym_kString]; SGroup 3809 1 [aux_sym_caseLabel_repeat1];
     SGroup 13596 1 [sym_range]; AGroup 3 2 syms_5; AGroup 15015 2 syms_6; AGroup 15019 2 syms_7;
     AGroup 15021 2 syms_8; AGroup 15023 2 syms_9; AGroup 15025 2 syms_10;
     AGroup 15033 2 syms_11; SGroup 8466 2 syms_12; SGroup 7201 3 syms_13; SGroup 9460 4 syms_14;
     AGroup 15027 5 syms_15; SGroup 7990 14 syms_17]);
   (109582, 22, [AGroup 5 1 [sym_ppDirective]; AGroup 15011 1 [anon_sym_LBRACK];
     AGroup 15013 1 [anon_sym_LPAREN]; AGroup 15017 1 [anon_sym_POUND];
     AGroup 15029 1 [sym_kSpecialize]; AGroup 15035 1 [sym_kIf]; AGroup 15037 1 [sym_kInherited];
     AGroup 15039 1 [sym_kString]; SGroup 3809 1 [aux_sym_caseLabel_repeat1];
     SGroup 13097 1 [sym_range]; AGroup 3 2 syms_5; AGroup 15015 2 syms_6; AGroup 15019 2 syms_7;
     AGroup 15021 2 syms_8; AGroup 15023 2 syms_9; AGroup 15025 2 syms_10;
     AGroup 15033 2 syms_11; SGroup 8466 2 syms_12; SGroup 7201 3 syms_13; SGroup 9519 4 syms_14;
     AGroup 15027 5 syms_15; SGroup 7990 14 syms_17]);
   (109679, 22, [AGroup 5 1 [sym_ppDirective]; AGroup 15647 1 [anon_sym_LBRACK];
     AGroup 15653 1 [anon_sym_POUND]; AGroup 15667 1 [sym_kSpecialize]; AGroup 15671 1 [sym_kIf];
     AGroup 15673 1 [sym_kInherited]; AGroup 15745 1 [anon_sym_LPAREN];
     AGroup 17076 1 [sym_kString]; SGroup 4095 1 [aux_sym_exprArgs_repeat1];
     SGroup 15639 1 [sym_exprArgs]; AGroup 3 2 syms_5; AGroup 15651 2 syms_6;
     AGroup 15655 2 syms_7; AGroup 15657 2 syms_8; AGroup 15659 2 syms_9; AGroup 15661 2 syms_10;
     AGroup 15669 2 syms_11; SGroup 8129 2 syms_12; SGroup 7100 3 syms_13; SGroup 8456 4 syms_14;
     AGroup 15663 5 syms_15; SGroup 7786 14 syms_17]);
   (109776, 22, [AGroup 5 1 [sym_ppDirective]; AGroup 15647 1 [anon_sym_LBRACK];
     AGroup 15653 1 [anon_sym_POUND]; AGroup 15667 1 [sym_kSpecialize]; AGroup 15671 1 [sym_kIf];
     AGroup 15673 1 [sym_kInherited]; AGroup 15745 1 [anon_sym_LPAREN];
     AGroup 17076 1 [sym_kString]; SGroup 4095 1 [aux_sym_exprArgs_repeat1];
     SGroup 15266 1 [sym_exprArgs]; AGroup 3 2 syms_5; AGroup 15651 2 syms_6;
     AGroup 15655 2 syms_7; AGroup 15657 2 syms_8; AGroup 15659 2 syms_9; AGroup 15661 2 syms_10;
     AGroup 15669 2 syms_11; SGroup 8129 2 syms_12; SGroup 7100 3 syms_13; SGroup 8456 4 syms_14;
     AGroup 15663 5 syms_15; SGroup 7786 14 syms_17]);
   (109873, 22, [AGroup 5 1 [sym_ppDirective]; AGroup 15647 1 [anon_sym_LBRACK];
     AGroup 15653 1 [anon_sym_POUND]; AGroup 15667 1 [sym_kSpecialize]; AGroup 15671 1 [sym_kIf];
     AGroup 15673 1 [sym_kInherited]; AGroup 15745 1 [anon_sym_LPAREN];
     AGroup 17076 1 [sym_kString]; SGroup 4095 1 [aux_sym_exprArgs_repeat1];
     SGroup 15524 1 [sym_exprArgs]; AGroup 3 2 syms_5; AGroup 15651 2 syms_6;
     AGroup 15655 2 syms_7; AGroup 15657 2 syms_8; AGroup 15659 2 syms_9; AGroup 15661 2 syms_10;
     AGroup 15669 2 syms_11; SGroup 8129 2 syms_12; SGroup 7100 3 syms_13; SGroup 8456 4 syms_14;
     AGroup 15663 5 syms_15; SGroup 7786 14 syms_17]);
   (109970, 22, [AGroup 5 1 [sym_ppDirective]; AGroup 15011 1 [anon_sym_LBRACK];
     AGroup 15013 1 [anon_sym_LPAREN]; AGroup 15017 1 [anon_sym_POUND];
     AGroup 15029 1 [sym_kSpecialize]; AGroup 15035 1 [sym_kIf]; AGroup 15037 1 [sym_kInherited];
     AGroup 15039 1 [sym_kString]; SGroup 3809 1 [aux_sym_caseLabel_repeat1];
     SGroup 13216 1 [sym_range]; AGroup 3 2 syms_5; AGroup 15015 2 syms_6; AGroup 15019 2 syms_7;
     AGroup 15021 2 syms_8; AGroup 15023 2 syms_9; AGroup 15025 2 syms_10;
     AGroup 15033 2 syms_11; SGroup 8466 2 syms_12; SGroup 7201 3 syms_13; SGroup 9564 4 syms_14;
     AGroup 15027 5 syms_15; SGroup 7990 14 syms_17]);
   (110067, 22, [AGroup 5 1 [sym_ppDirective]; AGroup 15647 1 [anon_sym_LBRACK];
     AGroup 15653 1 [anon_sym_POUND]; AGroup 15667 1 [sym_kSpecialize]; AGroup 15671 1 [sym_kIf];
     AGroup 15673 1 [sym_kInherited]; AGroup 15745 1 [anon_sym_LPAREN];
     AGroup 17076 1 [sym_kString]; SGroup 4095 1 [aux_sym_exprArgs_repeat1];
     SGroup 15791 1 [sym_exprArgs]; AGroup 3 2 syms_5; AGroup 15651 2 syms_6;
     AGroup 15655 2 syms_7; AGroup 15657 2 syms_8; AGroup 15659 2 syms_9; AGroup 15661 2 syms_10;
     AGroup 15669 2 syms_11; SGroup 8129 2 syms_12; SGroup 7100 3 syms_13; SGroup 8456 4 syms_14;
     AGroup 15663 5 syms_15; SGroup 7786 14 syms_17]);
   (110164, 23, [AGroup 5 1 [sym_ppDirective]; AGroup 15647 1 [anon_sym_LBRACK];
     AGroup 15653 1 [anon_sym_POUND]; AGroup 15667 1 [sym_kSpecialize];
     AGroup 15673 1 [sym_kInherited]; AGroup 15675 1 [sym_kString];
     AGroup 15745 1 [anon_sym_LPAREN]; AGroup 15755 1 [sym_kIf];
     AGroup 17750 1 [anon_sym_RBRACK]; AGroup 17754 1 [sym_identifier];
     SGroup 4061 1 [aux_sym_rttiAttributes_repeat1]; AGroup 3 2 syms_5; AGroup 15651 2 syms_6;
     AGroup 15655 2 syms_7; AGroup 15657 2 syms_8; AGroup 15669 2 syms_11; AGroup 15747 2 syms_9;
     AGroup 15749 2 syms_10; SGroup 8129 2 syms_12; SGroup 7100 3 syms_13;
     AGroup 17752 4 syms_57; SGroup 10347 4 syms_14; SGroup 8617 14 syms_17]);
   (110263, 33, [AGroup 5 1 [sym_ppDirective]; AGroup 13347 1 [anon_sym_LBRACK];
     AGroup 13351 1 [aux_sym_ppUsesBlock_token1]; AGroup 13365 1 [sym_identifier];
     AGroup 13367 1 [sym_kGeneric]; AGroup 13369 1 [sym_kOperator]; AGroup 13373 1 [sym_kStrict];
     AGroup 13377 1 [sym_kCase]; AGroup 13379 1 [sym_kClass]; AGroup 13391 1 [sym_kProperty];
     AGroup 13395 1 [sym_kType]; AGroup 17756 1 [anon_sym_SEMI];
     AGroup 17758 1 [anon_sym_LPAREN]; AGroup 17760 1 [sym_kName]; AGroup 17762 1 [sym_kEnd];
     SGroup 2 1 [sym__ppIf]; SGroup 6354 1 [sym__visibility]; SGroup 9779 1 [sym_ppBlock];
     SGroup 9835 1 [sym__declOperator]; SGroup 10247 1 [sym__declProc];
     SGroup 10617 1 [sym_rttiAttributes]; SGroup 10730 1 [aux_sym_rttiAttributes_repeat2];
     SGroup 13987 1 [aux_sym_genericArg_repeat1]; SGroup 14434 1 [sym_declVariant];
     SGroup 14738 1 [sym__declClass]; AGroup 3 2 syms_5; AGroup 13381 2 syms_65;
     AGroup 13393 2 syms_66; SGroup 5685 2 syms_68; SGroup 10490 3 syms_69;
     AGroup 13383 4 syms_3; AGroup 13371 6 syms_70; SGroup 6150 6 syms_71]);
   (110382, 22, [AGroup 5 1 [sym_ppDirective]; AGroup 15011 1 [anon_sym_LBRACK];
     AGroup 15013 1 [anon_sym_LPAREN]; AGroup 15017 1 [anon_sym_POUND];
     AGroup 15029 1 [sym_kSpecialize]; AGroup 15035 1 [sym_kIf]; AGroup 15037 1 [sym_kInherited];
     AGroup 15039 1 [sym_kString]; SGroup 3809 1 [aux_sym_caseLabel_repeat1];
     SGroup 13303 1 [sym_range]; AGroup 3 2 syms_5; AGroup 15015 2 syms_6; AGroup 15019 2 syms_7;
     AGroup 15021 2 syms_8; AGroup 15023 2 syms_9; AGroup 15025 2 syms_10;
     AGroup 15033 2 syms_11; SGroup 8466 2 syms_12; SGroup 7201 3 syms_13; SGroup 9590 4 syms_14;
     AGroup 15027 5 syms_15; SGroup 7990 14 syms_17]);
   (110479, 22, [AGroup 5 1 [sym_ppDirective]; AGroup 15647 1 [anon_sym_LBRACK];
     AGroup 15653 1 [anon_sym_POUND]; AGroup 15667 1 [sym_kSpecialize]; AGroup 15671 1 [sym_kIf];
     AGroup 15673 1 [sym_kInherited]; AGroup 15745 1 [anon_sym_LPAREN];
     AGroup 17076 1 [sym_kString]; SGroup 4095 1 [aux_sym_exprArgs_repeat1];
     SGroup 15986 1 [sym_exprArgs]; AGroup 3 2 syms_5; AGroup 15651 2 syms_6;
     AGroup 15655 2 syms_7; AGroup 15657 2 syms_8; AGroup 15659 2 syms_9; AGroup 15661 2 syms_10;
     AGroup 15669 2 syms_11; SGroup 8129 2 syms_12; SGroup 7100 3 syms_13; SGroup 8456 4 syms_14;
     AGroup 15663 5 syms_15; SGroup 7786 14 syms_17]);
   (110576, 23, [AGroup 5 1 [sym_ppDirective]; AGroup 15647 1 [anon_sym_LBRACK];
     AGroup 15653 1 [anon_sym_POUND]; AGroup 15667 1 [sym_kSpecialize];
     AGroup 15673 1 [sym_kInherited]; AGroup 15675 1 [sym_kString];
     AGroup 15745 1 [anon_sym_LPAREN]; AGroup 15755 1 [sym_kIf];
     AGroup 17764 1 [anon_sym_RBRACK]; AGroup 17768 1 [sym_identifier];
     SGroup 4117 1 [aux_sym_rttiAttributes_repeat1]; AGroup 3 2 syms_5; AGroup 15651 2 syms_6;
     AGroup 15655 2 syms_7; AGroup 15657 2 syms_8; AGroup 15669 2 syms_11; AGroup 15747 2 syms_9;
     AGroup 15749 2 syms_10; SGroup 8129 2 syms_12; SGroup 7100 3 syms_13;
     AGroup 17766 4 syms_57; SGroup 10347 4 syms_14; SGroup 8640 14 syms_17]);
   (110675, 22, [AGroup 5 1 [sym_ppDirective]; AGroup 15576 1 [sym_kElse]; AGroup 16071 1 [anon_sym_LBRACK];
     AGroup 16073 1 [anon_sym_LPAREN]; AGroup 16077 1 [anon_sym_POUND];
     AGroup 16091 1 [sym_kSpecialize]; AGroup 16095 1 [sym_kIf]; AGroup 16097 1 [sym_kInherited];
     AGroup 17710 1 [sym_kString]; AGroup 17770 1 [anon_sym_SEMI]; AGroup 3 2 syms_5;
     AGroup 16075 2 syms_6; AGroup 16079 2 syms_7; AGroup 16081 2 syms_8; AGroup 16083 2 syms_9;
     AGroup 16085 2 syms_10; AGroup 16093 2 syms_11; SGroup 8930 2 syms_12;
     SGroup 7257 3 syms_13; SGroup 9506 4 syms_14; AGroup 16087 5 syms_15; SGroup 8310 14 syms_17]);
   (110772, 22, [AGroup 5 1 [sym_ppDirective]; AGroup 15011 1 [anon_sym_LBRACK];
     AGroup 15013 1 [anon_sym_LPAREN]; AGroup 15017 1 [anon_sym_POUND];
     AGroup 15029 1 [sym_kSpecialize]; AGroup 15035 1 [sym_kIf]; AGroup 15037 1 [sym_kInherited];
     AGroup 15039 1 [sym_kString]; SGroup 3809 1 [aux_sym_caseLabel_repeat1];
     SGroup 13425 1 [sym_range]; AGroup 3 2 syms_5; AGroup 15015 2 syms_6; AGroup 15019 2 syms_7;
     AGroup 15021 2 syms_8; AGroup 15023 2 syms_9; AGroup 15025 2 syms_10;
     AGroup 15033 2 syms_11; SGroup 8466 2 syms_12; SGroup 7201 3 syms_13; SGroup 9388 4 syms_14;
     AGroup 15027 5 syms_15; SGroup 7990 14 syms_17]);
   (110869, 22, [AGroup 5 1 [sym_ppDirective]; AGroup 15647 1 [anon_sym_LBRACK];
     AGroup 15653 1 [anon_sym_POUND]; AGroup 15667 1 [sym_kSpecialize]; AGroup 15671 1 [sym_kIf];
     AGroup 15673 1 [sym_kInherited]; AGroup 15745 1 [anon_sym_LPAREN];
     AGroup 17076 1 [sym_kString]; SGroup 4095 1 [aux_sym_exprArgs_repeat1];
     SGroup 14213 1 [sym_exprArgs]; AGroup 3 2 syms_5; AGroup 15651 2 syms_6;
     AGroup 15655 2 syms_7; AGroup 15657 2 syms_8; AGroup 15659 2 syms_9; AGroup 15661 2 syms_10;
     AGroup 15669 2 syms_11; SGroup 8129 2 syms_12; SGroup 7100 3 syms_13; SGroup 8456 4 syms_14;
     AGroup 15663 5 syms_15; SGroup 7786 14 syms_17]);
   (110966, 22, [AGroup 5 1 [sym_ppDirective]; AGroup 15011 1 [anon_sym_LBRACK];
     AGroup 15013 1 [anon_sym_LPAREN]; AGroup 15017 1 [anon_sym_POUND];
     AGroup 15029 1 [sym_kSpecialize]; AGroup 15035 1 [sym_kIf]; AGroup 15037 1 [sym_kInherited];
     AGroup 15039 1 [sym_kString]; SGroup 3809 1 [aux_sym_caseLabel_repeat1];
     SGroup 13539 1 [sym_range]; AGroup 3 2 syms_5; AGroup 15015 2 syms_6; AGroup 15019 2 syms_7;
     AGroup 15021 2 syms_8; AGroup 15023 2 syms_9; AGroup 15025 2 syms_10;
     AGroup 15033 2 syms_11; SGroup 8466 2 syms_12; SGroup 7201 3 syms_13; SGroup 9403 4 syms_14;
     AGroup 15027 5 syms_15; SGroup 7990 14 syms_17]);
   (111063, 22, [AGroup 5 1 [sym_ppDirective]; AGroup 15647 1 [anon_sym_LBRACK];
     AGroup 15653 1 [anon_sym_POUND]; AGroup 15667 1 [sym_kSpecialize]; AGroup 15671 1 [sym_kIf];
     AGroup 15673 1 [sym_kInherited]; AGroup 15745 1 [anon_sym_LPAREN];
     AGroup 17076 1 [sym_kString]; SGroup 4095 1 [aux_sym_exprArgs_repeat1];
     SGroup 14300 1 [sym_exprArgs]; AGroup 3 2 syms_5; AGroup 15651 2 syms_6;
     AGroup 15655 2 syms_7; AGroup 15657 2 syms_8; AGroup 15659 2 syms_9; AGroup 15661 2 syms_10;
     AGroup 15669 2 syms_11; SGroup 8129 2 syms_12; SGroup 7100 3 syms_13; SGroup 8456 4 syms_14;
     AGroup 15663 5 syms_15; SGroup 7786 14 syms_17]);
   (111160, 22, [AGroup 5 1 [sym_ppDirective]; AGroup 15011 1 [anon_sym_LBRACK];
     AGroup 15013 1 [anon_sym_LPAREN]; AGroup 15017 1 [anon_sym_POUND];
     AGroup 15029 1 [sym_kSpecialize]; AGroup 15035 1 [sym_kIf]; AGroup 15037 1 [sym_kInherited];
     AGroup 15039 1 [sym_kString]; SGroup 3809 1 [aux_sym_caseLabel_repeat1];
     SGroup 13599 1 [sym_range]; AGroup 3 2 syms_5; AGroup 15015 2 syms_6; AGroup 15019 2 syms_7;
     AGroup 15021 2 syms_8; AGroup 15023 2 syms_9; AGroup 15025 2 syms_10;
     AGroup 15033 2 syms_11; SGroup 8466 2 syms_12; SGroup 7201 3 syms_13; SGroup 9424 4 syms_14;
     AGroup 15027 5 syms_15; SGroup 7990 14 syms_17]);
   (111257, 22, [AGroup 5 1 [sym_ppDirective]; AGroup 15647 1 [anon_sym_LBRACK];
     AGroup 15653 1 [anon_sym_POUND]; AGroup 15667 1 [sym_kSpecialize]; AGroup 15671 1 [sym_kIf];
     AGroup 15673 1 [sym_kInherited]; AGroup 15745 1 [anon_sym_LPAREN];
     AGroup 17076 1 [sym_kString]; SGroup 4095 1 [aux_sym_exprArgs_repeat1];
     SGroup 14346 1 [sym_exprArgs]; AGroup 3 2 syms_5; AGroup 15651 2 syms_6;
     AGroup 15655 2 syms_7; AGroup 15657 2 syms_8; AGroup 15659 2 syms_9; AGroup 15661 2 syms_10;
     AGroup 15669 2 syms_11; SGroup 8129 2 syms_12; SGroup 7100 3 syms_13; SGroup 8456 4 syms_14;
     AGroup 15663 5 syms_15; SGroup 7786 14 syms_17]);
   (111354, 22, [AGroup 5 1 [sym_ppDirective]; AGroup 15011 1 [anon_sym_LBRACK];
     AGroup 15013 1 [anon_sym_LPAREN]; AGroup 15017 1 [anon_sym_POUND];
     AGroup 15029 1 [sym_kSpecialize]; AGroup 15035 1 [sym_kIf]; AGroup 15037 1 [sym_kInherited];
     AGroup 15039 1 [sym_kString]; SGroup 3809 1 [aux_sym_caseLabel_repeat1];
     SGroup 13656 1 [sym_range]; AGroup 3 2 syms_5; AGroup 15015 2 syms_6; AGroup 15019 2 syms_7;
     AGroup 15021 2 syms_8; AGroup 15023 2 syms_9; AGroup 15025 2 syms_10;
     AGroup 15033 2 syms_11; SGroup 8466 2 syms_12; SGroup 7201 3 syms_13; SGroup 9434 4 syms_14;
     AGroup 15027 5 syms_15; SGroup 7990 14 syms_17]);
   (111451, 22, [AGroup 5 1 [sym_ppDirective]; AGroup 15647 1 [anon_sym_LBRACK];
     AGroup 15653 1 [anon_sym_POUND]; AGroup 15667 1 [sym_kSpecialize]; AGroup 15671 1 [sym_kIf];
     AGroup 15673 1 [sym_kInherited]; AGroup 15745 1 [anon_sym_LPAREN];
     AGroup 17076 1 [sym_kString]; SGroup 4095 1 [aux_sym_exprArgs_repeat1];
     SGroup 14403 1 [sym_exprArgs]; AGroup 3 2 syms_5; AGroup 15651 2 syms_6;
     AGroup 15655 2 syms_7; AGroup 15657 2 syms_8; AGroup 15659 2 syms_9; AGroup 15661 2 syms_10;
     AGroup 15669 2 syms_11; SGroup 8129 2 syms_12; SGroup 7100 3 syms_13; SGroup 8456 4 syms_14;
     AGroup 15663 5 syms_15; SGroup 7786 14 syms_17]);
   (111548, 22, [AGroup 5 1 [sym_ppDirective]; AGroup 15011 1 [anon_sym_LBRACK];
     AGroup 15013 1 [anon_sym_LPAREN]; AGroup 15017 1 [anon_sym_POUND];
     AGroup 15029 1 [sym_kSpecialize]; AGroup 15035 1 [sym_kIf]; AGroup 15037 1 [sym_kInherited];
     AGroup 15039 1 [sym_kString]; SGroup 3809 1 [aux_sym_caseLabel_repeat1];
     SGroup 13703 1 [sym_range]; AGroup 3 2 syms_5; AGroup 15015 2 syms_6; AGroup 15019 2 syms_7;
     AGroup 15021 2 syms_8; AGroup 15023 2 syms_9; AGroup 15025 2 syms_10;
     AGroup 15033 2 syms_11; SGroup 8466 2 syms_12; SGroup 7201 3 syms_13; SGroup 9444 4 syms_14;
     AGroup 15027 5 syms_15; SGroup 7990 14 syms_17]);
   (111645, 22, [AGroup 5 1 [sym_ppDirective]; AGroup 15647 1 [anon_sym_LBRACK];
     AGroup 15653 1 [anon_sym_POUND]; AGroup 15667 1 [sym_kSpecialize]; AGroup 15671 1 [sym_kIf];
     AGroup 15673 1 [sym_kInherited]; AGroup 15745 1 [anon_sym_LPAREN];
     AGroup 17076 1 [sym_kString]; SGroup 4095 1 [aux_sym_exprArgs_repeat1];
     SGroup 14453 1 [sym_exprArgs]; AGroup 3 2 syms_5; AGroup 15651 2 syms_6;
     AGroup 15655 2 syms_7; AGroup 15657 2 syms_8; AGroup 15659 2 syms_9; AGroup 15661 2 syms_10;
     AGroup 15669 2 syms_11; SGroup 8129 2 syms_12; SGroup 7100 3 syms_13; SGroup 8456 4 syms_14;
     AGroup 15663 5 syms_15; SGroup 7786 14 syms_17]);
   (111742, 22, [AGroup 5 1 [sym_ppDirective]; AGroup 15011 1 [anon_sym_LBRACK];
     AGroup 15013 1 [anon_sym_LPAREN]; AGroup 15017 1 [anon_sym_POUND];
     AGroup 15029 1 [sym_kSpecialize]; AGroup 15035 1 [sym_kIf]; AGroup 15037 1 [sym_kInherited];
     AGroup 15039 1 [sym_kString]; SGroup 3809 1 [aux_sym_caseLabel_repeat1];
     SGroup 13741 1 [sym_range]; AGroup 3 2 syms_5; AGroup 15015 2 syms_6; AGroup 15019 2 syms_7;
     AGroup 15021 2 syms_8; AGroup 15023 2 syms_9; AGroup 15025 2 syms_10;
     AGroup 15033 2 syms_11; SGroup 8466 2 syms_12; SGroup 7201 3 syms_13; SGroup 9448 4 syms_14;
     AGroup 15027 5 syms_15; SGroup 7990 14 syms_17]);
   (111839, 22, [AGroup 5 1 [sym_ppDirective]; AGroup 15647 1 [anon_sym_LBRACK];
     AGroup 15653 1 [anon_sym_POUND]; AGroup 15667 1 [sym_kSpecialize]; AGroup 15671 1 [sym_kIf];
     AGroup 15673 1 [sym_kInherited]; AGroup 15745 1 [anon_sym_LPAREN];
     AGroup 17076 1 [sym_kString]; SGroup 4095 1 [aux_sym_exprArgs_repeat1];
     SGroup 14505 1 [sym_exprArgs]; AGroup 3 2 syms_5; AGroup 15651 2 syms_6;
     AGroup 15655 2 syms_7; AGroup 15657 2 syms_8; AGroup 15659 2 syms_9; AGroup 15661 2 syms_10;
     AGroup 15669 2 syms_11; SGroup 8129 2 syms_12; SGroup 7100 3 syms_13; SGroup 8456 4 syms_14;
     AGroup 15663 5 syms_15; SGroup 7786 14 syms_17]);
   (111936, 22, [AGroup 5 1 [sym_ppDirective]; AGroup 15011 1 [anon_sym_LBRACK];
     AGroup 15013 1 [anon_sym_LPAREN]; AGroup 15017 1 [anon_sym_POUND];
     AGroup 15029 1 [sym_kSpecialize]; AGroup 15035 1 [sym_kIf]; AGroup 15037 1 [sym_kInherited];
     AGroup 15039 1 [sym_kString]; SGroup 3809 1 [aux_sym_caseLabel_repeat1];
     SGroup 13787 1 [sym_range]; AGroup 3 2 syms_5; AGroup 15015 2 syms_6; AGroup 15019 2 syms_7;
     AGroup 15021 2 syms_8; AGroup 15023 2 syms_9; AGroup 15025 2 syms_10;
     AGroup 15033 2 syms_11; SGroup 8466 2 syms_12; SGroup 7201 3 syms_13; SGroup 9454 4 syms_14;
     AGroup 15027 5 syms_15; SGroup 7990 14 syms_17]);
   (112033, 22, [AGroup 5 1 [sym_ppDirective]; AGroup 15647 1 [anon_sym_LBRACK];
     AGroup 15653 1 [anon_sym_POUND]; AGroup 15667 1 [sym_kSpecialize]; AGroup 15671 1 [sym_kIf];
     AGroup 15673 1 [sym_kInherited]; AGroup 15745 1 [anon_sym_LPAREN];
     AGroup 17076 1 [sym_kString]; SGroup 4095 1 [aux_sym_exprArgs_repeat1];
     SGroup 14553 1 [sym_exprArgs]; AGroup 3 2 syms_5; AGroup 15651 2 syms_6;
     AGroup 15655 2 syms_7; AGroup 15657 2 syms_8; AGroup 15659 2 syms_9; AGroup 15661 2 syms_10;
     AGroup 15669 2 syms_11; SGroup 8129 2 syms_12; SGroup 7100 3 syms_13; SGroup 8456 4 syms_14;
     AGroup 15663 5 syms_15; SGroup 7786 14 syms_17]);
   (112130, 22, [AGroup 5 1 [sym_ppDirective]; AGroup 15011 1 [anon_sym_LBRACK];
     AGroup 15013 1 [anon_sym_LPAREN]; AGroup 15017 1 [anon_sym_POUND];
     AGroup 15029 1 [sym_kSpecialize]; AGroup 15035 1 [sym_kIf]; AGroup 15037 1 [sym_kInherited];
     AGroup 15039 1 [sym_kString]; SGroup 3809 1 [aux_sym_caseLabel_repeat1];
     SGroup 13841 1 [sym_range]; AGroup 3 2 syms_5; AGroup 15015 2 syms_6; AGroup 15019 2 syms_7;
     AGroup 15021 2 syms_8; AGroup 15023 2 syms_9; AGroup 15025 2 syms_10;
     AGroup 15033 2 syms_11; SGroup 8466 2 syms_12; SGroup 7201 3 syms_13; SGroup 9458 4 syms_14;
     AGroup 15027 5 syms_15; SGroup 7990 14 syms_17]);
   (112227, 22, [AGroup 5 1 [sym_ppDirective]; AGroup 15647 1 [anon_sym_LBRACK];
     AGroup 15653 1 [anon_sym_POUND]; AGroup 15667 1 [sym_kSpecialize]; AGroup 15671 1 [sym_kIf];
     AGroup 15673 1 [sym_kInherited]; AGroup 15745 1 [anon_sym_LPAREN];
     AGroup 17076 1 [sym_kString]; SGroup 4095 1 [aux_sym_exprArgs_repeat1];
     SGroup 14603 1 [sym_exprArgs]; AGroup 3 2 syms_5; AGroup 15651 2 syms_6;
     AGroup 15655 2 syms_7; AGroup 15657 2 syms_8; AGroup 15659 2 syms_9; AGroup 15661 2 syms_10;
     AGroup 15669 2 syms_11; SGroup 8129 2 syms_12; SGroup 7100 3 syms_13; SGroup 8456 4 syms_14;
     AGroup 15663 5 syms_15; SGroup 7786 14 syms_17]);
   (112324, 22, [AGroup 5 1 [sym_ppDirective]; AGroup 15011 1 [anon_sym_LBRACK];
     AGroup 15013 1 [anon_sym_LPAREN]; AGroup 15017 1 [anon_sym_POUND];
     AGroup 15029 1 [sym_kSpecialize]; AGroup 15035 1 [sym_kIf]; AGroup 15037 1 [sym_kInherited];
     AGroup 15039 1 [sym_kString]; SGroup 3809 1 [aux_sym_caseLabel_repeat1];
     SGroup 13887 1 [sym_range]; AGroup 3 2 syms_5; AGroup 15015 2 syms_6; AGroup 15019 2 syms_7;
     AGroup 15021 2 syms_8; AGroup 15023 2 syms_9; AGroup 15025 2 syms_10;
     AGroup 15033 2 syms_11; SGroup 8466 2 syms_12; SGroup 7201 3 syms_13; SGroup 9461 4 syms_14;
     AGroup 15027 5 syms_15; SGroup 7990 14 syms_17]);
   (112421, 22, [AGroup 5 1 [sym_ppDirective]; AGroup 15647 1 [anon_sym_LBRACK];
     AGroup 15653 1 [anon_sym_POUND]; AGroup 15667 1 [sym_kSpecialize]; AGroup 15671 1 [sym_kIf];
     AGroup 15673 1 [sym_kInherited]; AGroup 15745 1 [anon_sym_LPAREN];
     AGroup 17076 1 [sym_kString]; SGroup 4095 1 [aux_sym_exprArgs_repeat1];
     SGroup 14677 1 [sym_exprArgs]; AGroup 3 2 syms_5; AGroup 15651 2 syms_6;
     AGroup 15655 2 syms_7; AGroup 15657 2 syms_8; AGroup 15659 2 syms_9; AGroup 15661 2 syms_10;
     AGroup 15669 2 syms_11; SGroup 8129 2 syms_12; SGroup 7100 3 syms_13; SGroup 8456 4 syms_14;
     AGroup 15663 5 syms_15; SGroup 7786 14 syms_17]);
   (112518, 22, [AGroup 5 1 [sym_ppDirective]; AGroup 15011 1 [anon_sym_LBRACK];
     AGroup 15013 1 [anon_sym_LPAREN]; AGroup 15017 1 [anon_sym_POUND];
     AGroup 15029 1 [sym_kSpecialize]; AGroup 15035 1 [sym_kIf]; AGroup 15037 1 [sym_kInherited];
     AGroup 15039 1 [sym_kString]; SGroup 3809 1 [aux_sym_caseLabel_repeat1];
     SGroup 13919 1 [sym_range]; AGroup 3 2 syms_5; AGroup 15015 2 syms_6; AGroup 15019 2 syms_7;
     AGroup 15021 2 syms_8; AGroup 15023 2 syms_9; AGroup 15025 2 syms_10;
     AGroup 15033 2 syms_11; SGroup 8466 2 syms_12; SGroup 7201 3 syms_13; SGroup 9469 4 syms_14;
     AGroup 15027 5 syms_15; SGroup 7990 14 syms_17]);
   (112615, 22, [AGroup 5 1 [sym_ppDirective]; AGroup 15647 1 [anon_sym_LBRACK];
     AGroup 15653 1 [anon_sym_POUND]; AGroup 15667 1 [sym_kSpecialize]; AGroup 15671 1 [sym_kIf];
     AGroup 15673 1 [sym_kInherited]; AGroup 15745 1 [anon_sym_LPAREN];
     AGroup 17076 1 [sym_kString]; SGroup 4095 1 [aux_sym_exprArgs_repeat1];
     SGroup 14730 1 [sym_exprArgs]; AGroup 3 2 syms_5; AGroup 15651 2 syms_6;
     AGroup 15655 2 syms_7; AGroup 15657 2 syms_8; AGroup 15659 2 syms_9; AGroup 15661 2 syms_10;
     AGroup 15669 2 syms_11; SGroup 8129 2 syms_12; SGroup 7100 3 syms_13; SGroup 8456 4 syms_14;
     AGroup 15663 5 syms_15; SGroup 7786 14 syms_17]);
   (112712, 22, [AGroup 5 1 [sym_ppDirective]; AGroup 15011 1 [anon_sym_LBRACK];
     AGroup 15013 1 [anon_sym_LPAREN]; AGroup 15017 1 [anon_sym_POUND];
     AGroup 15029 1 [sym_kSpecialize]; AGroup 15035 1 [sym_kIf]; AGroup 15037 1 [sym_kInherited];
     AGroup 15039 1 [sym_kString]; SGroup 3809 1 [aux_sym_caseLabel_repeat1];
     SGroup 13960 1 [sym_range]; AGroup 3 2 syms_5; AGroup 15015 2 syms_6; AGroup 15019 2 syms_7;
     AGroup 15021 2 syms_8; AGroup 15023 2 syms_9; AGroup 15025 2 syms_10;
     AGroup 15033 2 syms_11; SGroup 8466 2 syms_12; SGroup 7201 3 syms_13; SGroup 9472 4 syms_14;
     AGroup 15027 5 syms_15; SGroup 7990 14 syms_17]);
   (112809, 22, [AGroup 5 1 [sym_ppDirective]; AGroup 15647 1 [anon_sym_LBRACK];
     AGroup 15653 1 [anon_sym_POUND]; AGroup 15667 1 [sym_kSpecialize]; AGroup 15671 1 [sym_kIf];
     AGroup 15673 1 [sym_kInherited]; AGroup 15745 1 [anon_sym_LPAREN];
     AGroup 17076 1 [sym_kString]; SGroup 4095 1 [aux_sym_exprArgs_repeat1];
     SGroup 14774 1 [sym_exprArgs]; AGroup 3 2 syms_5; AGroup 15651 2 syms_6;
     AGroup 15655 2 syms_7; AGroup 15657 2 syms_8; AGroup 15659 2 syms_9; AGroup 15661 2 syms_10;
     AGroup 15669 2 syms_11; SGroup 8129 2 syms_12; SGroup 7100 3 syms_13; SGroup 8456 4 syms_14;
     AGroup 15663 5 syms_15; SGroup 7786 14 syms_17]);
   (112906, 22, [AGroup 5 1 [sym_ppDirective]; AGroup 15011 1 [anon_sym_LBRACK];
     AGroup 15013 1 [anon_sym_LPAREN]; AGroup 15017 1 [anon_sym_POUND];
     AGroup 15029 1 [sym_kSpecialize]; AGroup 15035 1 [sym_kIf]; AGroup 15037 1 [sym_kInherited];
     AGroup 15039 1 [sym_kString]; SGroup 3809 1 [aux_sym_caseLabel_repeat1];
     SGroup 13995 1 [sym_range]; AGroup 3 2 syms_5; AGroup 15015 2 syms_6; AGroup 15019 2 syms_7;
     AGroup 15021 2 syms_8; AGroup 15023 2 syms_9; AGroup 15025 2 syms_10;
     AGroup 15033 2 syms_11; SGroup 8466 2 syms_12; SGroup 7201 3 syms_13; SGroup 9477 4 syms_14;
     AGroup 15027 5 syms_15; SGroup 7990 14 syms_17]);
   (113003, 22, [AGroup 5 1 [sym_ppDirective]; AGroup 15647 1 [anon_sym_LBRACK];
     AGroup 15653 1 [anon_sym_POUND]; AGroup 15667 1 [sym_kSpecialize]; AGroup 15671 1 [sym_kIf];
     AGroup 15673 1 [sym_kInherited]; AGroup 15745 1 [anon_sym_LPAREN];
     AGroup 17076 1 [sym_kString]; SGroup 4095 1 [aux_sym_exprArgs_repeat1];
     SGroup 14819 1 [sym_exprArgs]; AGroup 3 2 syms_5; AGroup 15651 2 syms_6;
     AGroup 15655 2 syms_7; AGroup 15657 2 syms_8; AGroup 15659 2 syms_9; AGroup 15661 2 syms_10;
     AGroup 15669 2 syms_11; SGroup 8129 2 syms_12; SGroup 7100 3 syms_13; SGroup 8456 4 syms_14;
     AGroup 15663 5 syms_15; SGroup 7786 14 syms_17]);
   (113100, 22, [AGroup 5 1 [sym_ppDirective]; AGroup 15011 1 [anon_sym_LBRACK];
     AGroup 15013 1 [anon_sym_LPAREN]; AGroup 15017 1 [anon_sym_POUND];
     AGroup 15029 1 [sym_kSpecialize]; AGroup 15035 1 [sym_kIf]; AGroup 15037 1 [sym_kInherited];
     AGroup 15039 1 [sym_kString]; SGroup 3809 1 [aux_sym_caseLabel_repeat1];
     SGroup 14024 1 [sym_range]; AGroup 3 2 syms_5; AGroup 15015 2 syms_6; AGroup 15019 2 syms_7;
     AGroup 15021 2 syms_8; AGroup 15023 2 syms_9; AGroup 15025 2 syms_10;
     AGroup 15033 2 syms_11; SGroup 8466 2 syms_12; SGroup 7201 3 syms_13; SGroup 9479 4 syms_14;
     AGroup 15027 5 syms_15; SGroup 7990 14 syms_17]);
   (113197, 22, [AGroup 5 1 [sym_ppDirective]; AGroup 15647 1 [anon_sym_LBRACK];
     AGroup 15653 1 [anon_sym_POUND]; AGroup 15667 1 [sym_kSpecialize]; AGroup 15671 1 [sym_kIf];
     AGroup 15673 1 [sym_kInherited]; AGroup 15745 1 [anon_sym_LPAREN];
     AGroup 17076 1 [sym_kString]; SGroup 4095 1 [aux_sym_exprArgs_repeat1];
     SGroup 14866 1 [sym_exprArgs]; AGroup 3 2 syms_5; AGroup 15651 2 syms_6;
     AGroup 15655 2 syms_7; AGroup 15657 2 syms_8; AGroup 15659 2 syms_9; AGroup 15661 2 syms_10;
     AGroup 15669 2 syms_11; SGroup 8129 2 syms_12; SGroup 7100 3 syms_13; SGroup 8456 4 syms_14;
     AGroup 15663 5 syms_15; SGroup 7786 14 syms_17]);
   (113294, 22, [AGroup 5 1 [sym_ppDirective]; AGroup 15011 1 [anon_sym_LBRACK];
     AGroup 15013 1 [anon_sym_LPAREN]; AGroup 15017 1 [anon_sym_POUND];
     AGroup 15029 1 [sym_kSpecialize]; AGroup 15035 1 [sym_kIf]; AGroup 15037 1 [sym_kInherited];
     AGroup 15039 1 [sym_kString]; SGroup 3809 1 [aux_sym_caseLabel_repeat1];
     SGroup 14084 1 [sym_range]; AGroup 3 2 syms_5; AGroup 15015 2 syms_6; AGroup 15019 2 syms_7;
     AGroup 15021 2 syms_8; AGroup 15023 2 syms_9; AGroup 15025 2 syms_10;
     AGroup 15033 2 syms_11; SGroup 8466 2 syms_12; SGroup 7201 3 syms_13; SGroup 9483 4 syms_14;
     AGroup 15027 5 syms_15; SGroup 7990 14 syms_17]);
   (113391, 22, [AGroup 5 1 [sym_ppDirective]; AGroup 15647 1 [anon_sym_LBRACK];
     AGroup 15653 1 [anon_sym_POUND]; AGroup 15667 1 [sym_kSpecialize];
     AGroup 15673 1 [sym_kInherited]; AGroup 15675 1 [sym_kString];
     AGroup 15745 1 [anon_sym_LPAREN]; AGroup 15755 1 [sym_kIf];
     AGroup 17772 1 [anon_sym_RBRACK]; SGroup 4128 1 [aux_sym_rttiAttributes_repeat1];
     AGroup 3 2 syms_5; AGroup 15651 2 syms_6; AGroup 15655 2 syms_7; AGroup 15657 2 syms_8;
     AGroup 15669 2 syms_11; AGroup 15747 2 syms_9; AGroup 15749 2 syms_10;
     SGroup 8129 2 syms_12; SGroup 7100 3 syms_13; SGroup 10347 4 syms_14;
     AGroup 17774 5 syms_15; SGroup 8655 14 syms_17]);
   (113488, 4, [AGroup 5 1 [sym_ppDirective]; AGroup 3 2 syms_5; AGroup 15295 7 syms_34;
     AGroup 15293 42 syms_131]);
   (113549, 22, [AGroup 5 1 [sym_ppDirective]; AGroup 15647 1 [anon_sym_LBRACK];
     AGroup 15653 1 [anon_sym_POUND]; AGroup 15667 1 [sym_kSpecialize]; AGroup 15671 1 [sym_kIf];
     AGroup 15673 1 [sym_kInherited]; AGroup 15745 1 [anon_sym_LPAREN];
     AGroup 17076 1 [sym_kString]; SGroup 4095 1 [aux_sym_exprArgs_repeat1];
     SGroup 14968 1 [sym_exprArgs]; AGroup 3 2 syms_5; AGroup 15651 2 syms_6;
     AGroup 15655 2 syms_7; AGroup 15657 2 syms_8; AGroup 15659 2 syms_9; AGroup 15661 2 syms_10;
     AGroup 15669 2 syms_11; SGroup 8129 2 syms_12; SGroup 7100 3 syms_13; SGroup 8456 4 syms_14;
     AGroup 15663 5 syms_15; SGroup 7786 14 syms_17]);
   (113646, 22, [AGroup 5 1 [sym_ppDirective]; AGroup 15011 1 [anon_sym_LBRACK];
     AGroup 15013 1 [anon_sym_LPAREN]; AGroup 15017 1 [anon_sym_POUND];
     AGroup 15029 1 [sym_kSpecialize]; AGroup 15035 1 [sym_kIf]; AGroup 15037 1 [sym_kInherited];
     AGroup 15039 1 [sym_kString]; SGroup 3809 1 [aux_sym_caseLabel_repeat1];
     SGroup 13423 1 [sym_range]; AGroup 3 2 syms_5; AGroup 15015 2 syms_6; AGroup 15019 2 syms_7;
     AGroup 15021 2 syms_8; AGroup 15023 2 syms_9; AGroup 15025 2 syms_10;
     AGroup 15033 2 syms_11; SGroup 8466 2 syms_12; SGroup 7201 3 syms_13; SGroup 9500 4 syms_14;
     AGroup 15027 5 syms_15; SGroup 7990 14 syms_17]);
   (113743, 22, [AGroup 5 1 [sym_ppDirective]; AGroup 15647 1 [anon_sym_LBRACK];
     AGroup 15653 1 [anon_sym_POUND]; AGroup 15667 1 [sym_kSpecialize]; AGroup 15671 1 [sym_kIf];
     AGroup 15673 1 [sym_kInherited]; AGroup 15745 1 [anon_sym_LPAREN];
     AGroup 17076 1 [sym_kString]; SGroup 4095 1 [aux_sym_exprArgs_repeat1];
     SGroup 15017 1 [sym_exprArgs]; AGroup 3 2 syms_5; AGroup 15651 2 syms_6;
     AGroup 15655 2 syms_7; AGroup 15657 2 syms_8; AGroup 15659 2 syms_9; AGroup 15661 2 syms_10;
     AGroup 15669 2 syms_11; SGroup 8129 2 syms_12; SGroup 7100 3 syms_13; SGroup 8456 4 syms_14;
     AGroup 15663 5 syms_15; SGroup 7786 14 syms_17]);
   (113840, 22, [AGroup 5 1 [sym_ppDirective]; AGroup 15011 1 [anon_sym_LBRACK];
     AGroup 15013 1 [anon_sym_LPAREN]; AGroup 15017 1 [anon_sym_POUND];
     AGroup 15029 1 [sym_kSpecialize]; AGroup 15035 1 [sym_kIf]; AGroup 15037 1 [sym_kInherited];
     AGroup 15039 1 [sym_kString]; SGroup 3809 1 [aux_sym_caseLabel_repeat1];
     SGroup 13988 1 [sym_range]; AGroup 3 2 syms_5; AGroup 15015 2 syms_6; AGroup 15019 2 syms_7;
     AGroup 15021 2 syms_8; AGroup 15023 2 syms_9; AGroup 15025 2 syms_10;
     AGroup 15033 2 syms_11; SGroup 8466 2 syms_12; SGroup 7201 3 syms_13; SGroup 9518 4 syms_14;
     AGroup 15027 5 syms_15; SGroup 7990 14 syms_17]);
   (113937, 22, [AGroup 5 1 [sym_ppDirective]; AGroup 15647 1 [anon_sym_LBRACK];
     AGroup 15653 1 [anon_sym_POUND]; AGroup 15667 1 [sym_kSpecialize]; AGroup 15671 1 [sym_kIf];
     AGroup 15673 1 [sym_kInherited]; AGroup 15745 1 [anon_sym_LPAREN];
     AGroup 17076 1 [sym_kString]; SGroup 4095 1 [aux_sym_exprArgs_repeat1];
     SGroup 15066 1 [sym_exprArgs]; AGroup 3 2 syms_5; AGroup 15651 2 syms_6;
     AGroup 15655 2 syms_7; AGroup 15657 2 syms_8; AGroup 15659 2 syms_9; AGroup 15661 2 syms_10;
     AGroup 15669 2 syms_11; SGroup 8129 2 syms_12; SGroup 7100 3 syms_13; SGroup 8456 4 syms_14;
     AGroup 15663 5 syms_15; SGroup 7786 14 syms_17]);
   (114034, 22, [AGroup 5 1 [sym_ppDirective]; AGroup 15011 1 [anon_sym_LBRACK];
     AGroup 15013 1 [anon_sym_LPAREN]; AGroup 15017 1 [anon_sym_POUND];
     AGroup 15029 1 [sym_kSpecialize]; AGroup 15035 1 [sym_kIf]; AGroup 15037 1 [sym_kInherited];
     AGroup 15039 1 [sym_kString]; SGroup 3809 1 [aux_sym_caseLabel_repeat1];
     SGroup 13038 1 [sym_range]; AGroup 3 2 syms_5; AGroup 15015 2 syms_6; AGroup 15019 2 syms_7;
     AGroup 15021 2 syms_8; AGroup 15023 2 syms_9; AGroup 15025 2 syms_10;
     AGroup 15033 2 syms_11; SGroup 8466 2 syms_12; SGroup 7201 3 syms_13; SGroup 9540 4 syms_14;
     AGroup 15027 5 syms_15; SGroup 7990 14 syms_17]);
   (114131, 22, [AGroup 5 1 [sym_ppDirective]; AGroup 15647 1 [anon_sym_LBRACK];
     AGroup 15653 1 [anon_sym_POUND]; AGroup 15667 1 [sym_kSpecialize]; AGroup 15671 1 [sym_kIf];
     AGroup 15673 1 [sym_kInherited]; AGroup 15745 1 [anon_sym_LPAREN];
     AGroup 17076 1 [sym_kString]; SGroup 4095 1 [aux_sym_exprArgs_repeat1];
     SGroup 15128 1 [sym_exprArgs]; AGroup 3 2 syms_5; AGroup 15651 2 syms_6;
     AGroup 15655 2 syms_7; AGroup 15657 2 syms_8; AGroup 15659 2 syms_9; AGroup 15661 2 syms_10;
     AGroup 15669 2 syms_11; SGroup 8129 2 syms_12; SGroup 7100 3 syms_13; SGroup 8456 4 syms_14;
     AGroup 15663 5 syms_15; SGroup 7786 14 syms_17]);
   (114228, 22, [AGroup 5 1 [sym_ppDirective]; AGroup 15011 1 [anon_sym_LBRACK];
     AGroup 15013 1 [anon_sym_LPAREN]; AGroup 15017 1 [anon_sym_POUND];
     AGroup 15029 1 [sym_kSpecialize]; AGroup 15035 1 [sym_kIf]; AGroup 15037 1 [sym_kInherited];
     AGroup 15039 1 [sym_kString]; SGroup 3809 1 [aux_sym_caseLabel_repeat1];
     SGroup 13210 1 [sym_range]; AGroup 3 2 syms_5; AGroup 15015 2 syms_6; AGroup 15019 2 syms_7;
     AGroup 15021 2 syms_8; AGroup 15023 2 syms_9; AGroup 15025 2 syms_10;
     AGroup 15033 2 syms_11; SGroup 8466 2 syms_12; SGroup 7201 3 syms_13; SGroup 9545 4 syms_14;
     AGroup 15027 5 syms_15; SGroup 7990 14 syms_17]);
   (114325, 22, [AGroup 5 1 [sym_ppDirective]; AGroup 15647 1 [anon_sym_LBRACK];
     AGroup 15653 1 [anon_sym_POUND]; AGroup 15667 1 [sym_kSpecialize]; AGroup 15671 1 [sym_kIf];
     AGroup 15673 1 [sym_kInherited]; AGroup 15745 1 [anon_sym_LPAREN];
     AGroup 17076 1 [sym_kString]; SGroup 4095 1 [aux_sym_exprArgs_repeat1];
     SGroup 15180 1 [sym_exprArgs]; AGroup 3 2 syms_5; AGroup 15651 2 syms_6;
     AGroup 15655 2 syms_7; AGroup 15657 2 syms_8; AGroup 15659 2 syms_9; AGroup 15661 2 syms_10;
     AGroup 15669 2 syms_11; SGroup 8129 2 syms_12; SGroup 7100 3 syms_13; SGroup 8456 4 syms_14;
     AGroup 15663 5 syms_15; SGroup 7786 14 syms_17]);
   (114422, 22, [AGroup 5 1 [sym_ppDirective]; AGroup 15011 1 [anon_sym_LBRACK];
     AGroup 15013 1 [anon_sym_LPAREN]; AGroup 15017 1 [anon_sym_POUND];
     AGroup 15029 1 [sym_kSpecialize]; AGroup 15035 1 [sym_kIf]; AGroup 15037 1 [sym_kInherited];
     AGroup 15039 1 [sym_kString]; SGroup 3809 1 [aux_sym_caseLabel_repeat1];
     SGroup 13375 1 [sym_range]; AGroup 3 2 syms_5; AGroup 15015 2 syms_6; AGroup 15019 2 syms_7;
     AGroup 15021 2 syms_8; AGroup 15023 2 syms_9; AGroup 15025 2 syms_10;
     AGroup 15033 2 syms_11; SGroup 8466 2 syms_12; SGroup 7201 3 syms_13; SGroup 9550 4 syms_14;
     AGroup 15027 5 syms_15; SGroup 7990 14 syms_17]);
   (114519, 22, [AGroup 5 1 [sym_ppDirective]; AGroup 15647 1 [anon_sym_LBRACK];
     AGroup 15653 1 [anon_sym_POUND]; AGroup 15667 1 [sym_kSpecialize]; AGroup 15671 1 [sym_kIf];
     AGroup 15673 1 [sym_kInherited]; AGroup 15745 1 [anon_sym_LPAREN];
     AGroup 17076 1 [sym_kString]; SGroup 4095 1 [aux_sym_exprArgs_repeat1];
     SGroup 15229 1 [sym_exprArgs]; AGroup 3 2 syms_5; AGroup 15651 2 syms_6;
     AGroup 15655 2 syms_7; AGroup 15657 2 syms_8; AGroup 15659 2 syms_9; AGroup 15661 2 syms_10;
     AGroup 15669 2 syms_11; SGroup 8129 2 syms_12; SGroup 7100 3 syms_13; SGroup 8456 4 syms_14;
     AGroup 15663 5 syms_15; SGroup 7786 14 syms_17]);
   (114616, 22, [AGroup 5 1 [sym_ppDirective]; AGroup 15011 1 [anon_sym_LBRACK];
     AGroup 15013 1 [anon_sym_LPAREN]; AGroup 15017 1 [anon_sym_POUND];
     AGroup 15029 1 [sym_kSpecialize]; AGroup 15035 1 [sym_kIf]; AGroup 15037 1 [sym_kInherited];
     AGroup 15039 1 [sym_kString]; SGroup 3809 1 [aux_sym_caseLabel_repeat1];
     SGroup 13528 1 [sym_range]; AGroup 3 2 syms_5; AGroup 15015 2 syms_6; AGroup 15019 2 syms_7;
     AGroup 15021 2 syms_8; AGroup 15023 2 syms_9; AGroup 15025 2 syms_10;
     AGroup 15033 2 syms_11; SGroup 8466 2 syms_12; SGroup 7201 3 syms_13; SGroup 9561 4 syms_14;
     AGroup 15027 5 syms_15; SGroup 7990 14 syms_17]);
   (114713, 22, [AGroup 5 1 [sym_ppDirective]; AGroup 15647 1 [anon_sym_LBRACK];
     AGroup 15653 1 [anon_sym_POUND]; AGroup 15667 1 [sym_kSpecialize]; AGroup 15671 1 [sym_kIf];
     AGroup 15673 1 [sym_kInherited]; AGroup 15745 1 [anon_sym_LPAREN];
     AGroup 17076 1 [sym_kString]; SGroup 4095 1 [aux_sym_exprArgs_repeat1];
     SGroup 15283 1 [sym_exprArgs]; AGroup 3 2 syms_5; AGroup 15651 2 syms_6;
     AGroup 15655 2 syms_7; AGroup 15657 2 syms_8; AGroup 15659 2 syms_9; AGroup 15661 2 syms_10;
     AGroup 15669 2 syms_11; SGroup 8129 2 syms_12; SGroup 7100 3 syms_13; SGroup 8456 4 syms_14;
     AGroup 15663 5 syms_15; SGroup 7786 14 syms_17]);
   (114810, 22, [AGroup 5 1 [sym_ppDirective]; AGroup 15011 1 [anon_sym_LBRACK];
     AGroup 15013 1 [anon_sym_LPAREN]; AGroup 15017 1 [anon_sym_POUND];
     AGroup 15029 1 [sym_kSpecialize]; AGroup 15035 1 [sym_kIf]; AGroup 15037 1 [sym_kInherited];
     AGroup 15039 1 [sym_kString]; SGroup 3809 1 [aux_sym_caseLabel_repeat1];
     SGroup 13659 1 [sym_range]; AGroup 3 2 syms_5; AGroup 15015 2 syms_6; AGroup 15019 2 syms_7;
     AGroup 15021 2 syms_8; AGroup 15023 2 syms_9; AGroup 15025 2 syms_10;
     AGroup 15033 2 syms_11; SGroup 8466 2 syms_12; SGroup 7201 3 syms_13; SGroup 9569 4 syms_14;
     AGroup 15027 5 syms_15; SGroup 7990 14 syms_17]);
   (114907, 22, [AGroup 5 1 [sym_ppDirective]; AGroup 15647 1 [anon_sym_LBRACK];
     AGroup 15653 1 [anon_sym_POUND]; AGroup 15667 1 [sym_kSpecialize]; AGroup 15671 1 [sym_kIf];
     AGroup 15673 1 [sym_kInherited]; AGroup 15745 1 [anon_sym_LPAREN];
     AGroup 17076 1 [sym_kString]; SGroup 4095 1 [aux_sym_exprArgs_repeat1];
     SGroup 15334 1 [sym_exprArgs]; AGroup 3 2 syms_5; AGroup 15651 2 syms_6;
     AGroup 15655 2 syms_7; AGroup 15657 2 syms_8; AGroup 15659 2 syms_9; AGroup 15661 2 syms_10;
     AGroup 15669 2 syms_11; SGroup 8129 2 syms_12; SGroup 7100 3 syms_13; SGroup 8456 4 syms_14;
     AGroup 15663 5 syms_15; SGroup 7786 14 syms_17]);
   (115004, 22, [AGroup 5 1 [sym_ppDirective]; AGroup 15011 1 [anon_sym_LBRACK];
     AGroup 15013 1 [anon_sym_LPAREN]; AGroup 15017 1 [anon_sym_POUND];
     AGroup 15029 1 [sym_kSpecialize]; AGroup 15035 1 [sym_kIf]; AGroup 15037 1 [sym_kInherited];
     AGroup 15039 1 [sym_kString]; SGroup 3809 1 [aux_sym_caseLabel_repeat1];
     SGroup 13890 1 [sym_range]; AGroup 3 2 syms_5; AGroup 15015 2 syms_6; AGroup 15019 2 syms_7;
     AGroup 15021 2 syms_8; AGroup 15023 2 syms_9; AGroup 15025 2 syms_10;
     AGroup 15033 2 syms_11; SGroup 8466 2 syms_12; SGroup 7201 3 syms_13; SGroup 9574 4 syms_14;
     AGroup 15027 5 syms_15; SGroup 7990 14 syms_17]);
   (115101, 22, [AGroup 5 1 [sym_ppDirective]; AGroup 15647 1 [anon_sym_LBRACK];
     AGroup 15653 1 [anon_sym_POUND]; AGroup 15667 1 [sym_kSpecialize]; AGroup 15671 1 [sym_kIf];
     AGroup 15673 1 [sym_kInherited]; AGroup 15745 1 [anon_sym_LPAREN];
     AGroup 17076 1 [sym_kString]; SGroup 4095 1 [aux_sym_exprArgs_repeat1];
     SGroup 15405 1 [sym_exprArgs]; AGroup 3 2 syms_5; AGroup 15651 2 syms_6;
     AGroup 15655 2 syms_7; AGroup 15657 2 syms_8; AGroup 15659 2 syms_9; AGroup 15661 2 syms_10;
     AGroup 15669 2 syms_11; SGroup 8129 2 syms_12; SGroup 7100 3 syms_13; SGroup 8456 4 syms_14;
     AGroup 15663 5 syms_15; SGroup 7786 14 syms_17]);
   (115198, 22, [AGroup 5 1 [sym_ppDirective]; AGroup 15576 1 [sym_kElse]; AGroup 16071 1 [anon_sym_LBRACK];
     AGroup 16073 1 [anon_sym_LPAREN]; AGroup 16077 1 [anon_sym_POUND];
     AGroup 16091 1 [sym_kSpecialize]; AGroup 16095 1 [sym_kIf]; AGroup 16097 1 [sym_kInherited];
     AGroup 17710 1 [sym_kString]; AGroup 17776 1 [anon_sym_SEMI]; AGroup 3 2 syms_5;
     AGroup 16075 2 syms_6; AGroup 16079 2 syms_7; AGroup 16081 2 syms_8; AGroup 16083 2 syms_9;
     AGroup 16085 2 syms_10; AGroup 16093 2 syms_11; SGroup 8930 2 syms_12;
     SGroup 7257 3 syms_13; SGroup 9559 4 syms_14; AGroup 16087 5 syms_15; SGroup 8310 14 syms_17]);
   (115295, 22, [AGroup 5 1 [sym_ppDirective]; AGroup 15576 1 [sym_kElse]; AGroup 16071 1 [anon_sym_LBRACK];
     AGroup 16073 1 [anon_sym_LPAREN]; AGroup 16077 1 [anon_sym_POUND];
     AGroup 16091 1 [sym_kSpecialize]; AGroup 16095 1 [sym_kIf]; AGroup 16097 1 [sym_kInherited];
     AGroup 17710 1 [sym_kString]; AGroup 17778 1 [anon_sym_SEMI]; AGroup 3 2 syms_5;
     AGroup 16075 2 syms_6; AGroup 16079 2 syms_7; AGroup 16081 2 syms_8; AGroup 16083 2 syms_9;
     AGroup 16085 2 syms_10; AGroup 16093 2 syms_11; SGroup 8930 2 syms_12;
     SGroup 7257 3 syms_13; SGroup 9548 4 syms_14; AGroup 16087 5 syms_15; SGroup 8310 14 syms_17]);
   (115392, 3, [AGroup 5 1 [sym_ppDirective]; AGroup 3 2 syms_5; AGroup 9834 49 syms_127]);
   (115451, 3, [AGroup 5 1 [sym_ppDirective]; AGroup 3 2 syms_5; AGroup 9838 49 syms_127]);
   (115510, 12, [AGroup 17132 1 [sym_kDispId]; AGroup 17134 1 [sym_kPublic]; AGroup 17136 1 [sym_kExternal];
     AGroup 17138 1 [sym_kMessage]; AGroup 17140 1 [sym_kDeprecated];
     AGroup 17142 1 [sym_kExport]; AGroup 17144 1 [sym_kAlias];
     SGroup 4005 1 [aux_sym__procAttribute_repeat1]; SGroup 13260 1 [sym_procAttribute];
     SGroup 13265 1 [sym_procExternal]; AGroup 3 3 syms_1; AGroup 1016 39 syms_33]);
   (115587, 22, [AGroup 5 1 [sym_ppDirective]; AGroup 15011 1 [anon_sym_LBRACK];
     AGroup 15013 1 [anon_sym_LPAREN]; AGroup 15017 1 [anon_sym_POUND];
     AGroup 15029 1 [sym_kSpecialize]; AGroup 15035 1 [sym_kIf]; AGroup 15037 1 [sym_kInherited];
     AGroup 15039 1 [sym_kString]; SGroup 3812 1 [aux_sym_declArray_repeat1];
     SGroup 13313 1 [sym_range]; AGroup 3 2 syms_5; AGroup 15015 2 syms_6; AGroup 15019 2 syms_7;
     AGroup 15021 2 syms_8; AGroup 15023 2 syms_9; AGroup 15025 2 syms_10;
     AGroup 15033 2 syms_11; SGroup 8466 2 syms_12; SGroup 7201 3 syms_13; SGroup 9616 4 syms_14;
     AGroup 15027 5 syms_15; SGroup 7990 14 syms_17]);
   (115684, 22, [AGroup 5 1 [sym_ppDirective]; AGroup 15011 1 [anon_sym_LBRACK];
     AGroup 15013 1 [anon_sym_LPAREN]; AGroup 15017 1 [anon_sym_POUND];
     AGroup 15029 1 [sym_kSpecialize]; AGroup 15035 1 [sym_kIf]; AGroup 15037 1 [sym_kInherited];
     AGroup 15039 1 [sym_kString]; SGroup 3812 1 [aux_sym_declArray_repeat1];
     SGroup 13334 1 [sym_range]; AGroup 3 2 syms_5; AGroup 15015 2 syms_6; AGroup 15019 2 syms_7;
     AGroup 15021 2 syms_8; AGroup 15023 2 syms_9; AGroup 15025 2 syms_10;
     AGroup 15033 2 syms_11; SGroup 8466 2 syms_12; SGroup 7201 3 syms_13; SGroup 9617 4 syms_14;
     AGroup 15027 5 syms_15; SGroup 7990 14 syms_17])
  ].

(** States 3959 to 4058. *)
Definition small_runs_3959 : list small_run :=
  [
   (115781, 5, [AGroup 5 1 [sym_ppDirective]; AGroup 3 2 syms_5; AGroup 15496 7 syms_34;
     AGroup 15403 18 syms_36; AGroup 15494 24 syms_125]);
   (115844, 22, [AGroup 5 1 [sym_ppDirective]; AGroup 15576 1 [sym_kElse]; AGroup 16071 1 [anon_sym_LBRACK];
     AGroup 16073 1 [anon_sym_LPAREN]; AGroup 16077 1 [anon_sym_POUND];
     AGroup 16091 1 [sym_kSpecialize]; AGroup 16095 1 [sym_kIf]; AGroup 16097 1 [sym_kInherited];
     AGroup 17710 1 [sym_kString]; AGroup 17780 1 [anon_sym_SEMI]; AGroup 3 2 syms_5;
     AGroup 16075 2 syms_6; AGroup 16079 2 syms_7; AGroup 16081 2 syms_8; AGroup 16083 2 syms_9;
     AGroup 16085 2 syms_10; AGroup 16093 2 syms_11; SGroup 8930 2 syms_12;
     SGroup 7257 3 syms_13; SGroup 9492 4 syms_14; AGroup 16087 5 syms_15; SGroup 8310 14 syms_17]);
   (115941, 3, [AGroup 5 1 [sym_ppDirective]; AGroup 3 2 syms_5; AGroup 9910 49 syms_127]);
   (116000, 22, [AGroup 5 1 [sym_ppDirective]; AGroup 15647 1 [anon_sym_LBRACK];
     AGroup 15653 1 [anon_sym_POUND]; AGroup 15667 1 [sym_kSpecialize]; AGroup 15671 1 [sym_kIf];
     AGroup 15673 1 [sym_kInherited]; AGroup 15745 1 [anon_sym_LPAREN];
     AGroup 17076 1 [sym_kString]; SGroup 4095 1 [aux_sym_exprArgs_repeat1];
     SGroup 14722 1 [sym_exprArgs]; AGroup 3 2 syms_5; AGroup 15651 2 syms_6;
     AGroup 15655 2 syms_7; AGroup 15657 2 syms_8; AGroup 15659 2 syms_9; AGroup 15661 2 syms_10;
     AGroup 15669 2 syms_11; SGroup 8129 2 syms_12; SGroup 7100 3 syms_13; SGroup 8456 4 syms_14;
     AGroup 15663 5 syms_15; SGroup 7786 14 syms_17]);
   (116097, 12, [AGroup 17132 1 [sym_kDispId]; AGroup 17134 1 [sym_kPublic]; AGroup 17136 1 [sym_kExternal];
     AGroup 17138 1 [sym_kMessage]; AGroup 17140 1 [sym_kDeprecated];
     AGroup 17142 1 [sym_kExport]; AGroup 17144 1 [sym_kAlias];
     SGroup 4005 1 [aux_sym__procAttribute_repeat1]; SGroup 13630 1 [sym_procAttribute];
     SGroup 13631 1 [sym_procExternal]; AGroup 3 3 syms_1; AGroup 1016 39 syms_33]);
   (116174, 22, [AGroup 5 1 [sym_ppDirective]; AGroup 15011 1 [anon_sym_LBRACK];
     AGroup 15013 1 [anon_sym_LPAREN]; AGroup 15017 1 [anon_sym_POUND];
     AGroup 15029 1 [sym_kSpecialize]; AGroup 15035 1 [sym_kIf]; AGroup 15037 1 [sym_kInherited];
     AGroup 15039 1 [sym_kString]; SGroup 3812 1 [aux_sym_declArray_repeat1];
     SGroup 13668 1 [sym_range]; AGroup 3 2 syms_5; AGroup 15015 2 syms_6; AGroup 15019 2 syms_7;
     AGroup 15021 2 syms_8; AGroup 15023 2 syms_9; AGroup 15025 2 syms_10;
     AGroup 15033 2 syms_11; SGroup 8466 2 syms_12; SGroup 7201 3 syms_13; SGroup 9416 4 syms_14;
     AGroup 15027 5 syms_15; SGroup 7990 14 syms_17]);
   (116271, 22, [AGroup 5 1 [sym_ppDirective]; AGroup 15011 1 [anon_sym_LBRACK];
     AGroup 15013 1 [anon_sym_LPAREN]; AGroup 15017 1 [anon_sym_POUND];
     AGroup 15029 1 [sym_kSpecialize]; AGroup 15035 1 [sym_kIf]; AGroup 15037 1 [sym_kInherited];
     AGroup 15039 1 [sym_kString]; SGroup 3812 1 [aux_sym_declArray_repeat1];
     SGroup 13677 1 [sym_range]; AGroup 3 2 syms_5; AGroup 15015 2 syms_6; AGroup 15019 2 syms_7;
     AGroup 15021 2 syms_8; AGroup 15023 2 syms_9; AGroup 15025 2 syms_10;
     AGroup 15033 2 syms_11; SGroup 8466 2 syms_12; SGroup 7201 3 syms_13; SGroup 9417 4 syms_14;
     AGroup 15027 5 syms_15; SGroup 7990 14 syms_17]);
   (116368, 23, [AGroup 5 1 [sym_ppDirective]; AGroup 15647 1 [anon_sym_LBRACK];
     AGroup 15653 1 [anon_sym_POUND]; AGroup 15667 1 [sym_kSpecialize];
     AGroup 15673 1 [sym_kInherited]; AGroup 15675 1 [sym_kString];
     AGroup 15745 1 [anon_sym_LPAREN]; AGroup 15755 1 [sym_kIf];
     AGroup 17782 1 [anon_sym_RBRACK]; AGroup 17786 1 [sym_identifier];
     SGroup 4124 1 [aux_sym_rttiAttributes_repeat1]; AGroup 3 2 syms_5; AGroup 15651 2 syms_6;
     AGroup 15655 2 syms_7; AGroup 15657 2 syms_8; AGroup 15669 2 syms_11; AGroup 15747 2 syms_9;
     AGroup 15749 2 syms_10; SGroup 8129 2 syms_12; SGroup 7100 3 syms_13;
     AGroup 17784 4 syms_57; SGroup 10347 4 syms_14; SGroup 8651 14 syms_17]);
   (116467, 5, [AGroup 5 1 [sym_ppDirective]; AGroup 3 2 syms_5; AGroup 15473 7 syms_34;
     AGroup 15403 18 syms_36; AGroup 15471 24 syms_128]);
   (116530, 22, [AGroup 5 1 [sym_ppDirective]; AGroup 15576 1 [sym_kEnd]; AGroup 16569 1 [anon_sym_LBRACK];
     AGroup 16571 1 [anon_sym_LPAREN]; AGroup 16575 1 [anon_sym_POUND];
     AGroup 16589 1 [sym_kSpecialize]; AGroup 16593 1 [sym_kIf]; AGroup 16595 1 [sym_kInherited];
     AGroup 17382 1 [anon_sym_SEMI]; AGroup 17788 1 [sym_kString]; AGroup 3 2 syms_5;
     AGroup 16573 2 syms_6; AGroup 16577 2 syms_7; AGroup 16579 2 syms_8; AGroup 16581 2 syms_9;
     AGroup 16583 2 syms_10; AGroup 16591 2 syms_11; SGroup 8889 2 syms_12;
     SGroup 7286 3 syms_13; SGroup 9618 4 syms_14; AGroup 16585 5 syms_15; SGroup 8506 14 syms_17]);
   (116627, 33, [AGroup 5 1 [sym_ppDirective]; AGroup 13351 1 [aux_sym_ppUsesBlock_token1];
     AGroup 13365 1 [sym_identifier]; AGroup 13367 1 [sym_kGeneric];
     AGroup 13369 1 [sym_kOperator]; AGroup 13373 1 [sym_kStrict]; AGroup 13377 1 [sym_kCase];
     AGroup 13379 1 [sym_kClass]; AGroup 13391 1 [sym_kProperty]; AGroup 13395 1 [sym_kType];
     AGroup 17790 1 [anon_sym_SEMI]; AGroup 17792 1 [anon_sym_LBRACK];
     AGroup 17794 1 [anon_sym_LPAREN]; AGroup 17796 1 [sym_kEnd]; SGroup 2 1 [sym__ppIf];
     SGroup 5202 1 [sym_guid]; SGroup 6354 1 [sym__visibility]; SGroup 9779 1 [sym_ppBlock];
     SGroup 9835 1 [sym__declOperator]; SGroup 10247 1 [sym__declProc];
     SGroup 10617 1 [sym_rttiAttributes]; SGroup 10730 1 [aux_sym_rttiAttributes_repeat2];
     SGroup 13987 1 [aux_sym_genericArg_repeat1]; SGroup 14434 1 [sym_declVariant];
     SGroup 14612 1 [sym__declClass]; AGroup 3 2 syms_5; AGroup 13381 2 syms_65;
     AGroup 13393 2 syms_66; SGroup 5685 2 syms_68; SGroup 10490 3 syms_69;
     AGroup 13383 4 syms_3; AGroup 13371 6 syms_70; SGroup 6150 6 syms_71]);
   (116746, 12, [AGroup 17132 1 [sym_kDispId]; AGroup 17134 1 [sym_kPublic]; AGroup 17136 1 [sym_kExternal];
     AGroup 17138 1 [sym_kMessage]; AGroup 17140 1 [sym_kDeprecated];
     AGroup 17142 1 [sym_kExport]; AGroup 17144 1 [sym_kAlias];
     SGroup 4005 1 [aux_sym__procAttribute_repeat1]; SGroup 13972 1 [sym_procAttribute];
     SGroup 13973 1 [sym_procExternal]; AGroup 3 3 syms_1; AGroup 1016 39 syms_33]);
   (116823, 22, [AGroup 5 1 [sym_ppDirective]; AGroup 15011 1 [anon_sym_LBRACK];
     AGroup 15013 1 [anon_sym_LPAREN]; AGroup 15017 1 [anon_sym_POUND];
     AGroup 15029 1 [sym_kSpecialize]; AGroup 15035 1 [sym_kIf]; AGroup 15037 1 [sym_kInherited];
     AGroup 15039 1 [sym_kString]; SGroup 3812 1 [aux_sym_declArray_repeat1];
     SGroup 14015 1 [sym_range]; AGroup 3 2 syms_5; AGroup 15015 2 syms_6; AGroup 15019 2 syms_7;
     AGroup 15021 2 syms_8; AGroup 15023 2 syms_9; AGroup 15025 2 syms_10;
     AGroup 15033 2 syms_11; SGroup 8466 2 syms_12; SGroup 7201 3 syms_13; SGroup 9429 4 syms_14;
     AGroup 15027 5 syms_15; SGroup 7990 14 syms_17]);
   (116920, 22, [AGroup 5 1 [sym_ppDirective]; AGroup 15011 1 [anon_sym_LBRACK];
     AGroup 15013 1 [anon_sym_LPAREN]; AGroup 15017 1 [anon_sym_POUND];
     AGroup 15029 1 [sym_kSpecialize]; AGroup 15035 1 [sym_kIf]; AGroup 15037 1 [sym_kInherited];
     AGroup 15039 1 [sym_kString]; SGroup 3812 1 [aux_sym_declArray_repeat1];
     SGroup 14029 1 [sym_range]; AGroup 3 2 syms_5; AGroup 15015 2 syms_6; AGroup 15019 2 syms_7;
     AGroup 15021 2 syms_8; AGroup 15023 2 syms_9; AGroup 15025 2 syms_10;
     AGroup 15033 2 syms_11; SGroup 8466 2 syms_12; SGroup 7201 3 syms_13; SGroup 9430 4 syms_14;
     AGroup 15027 5 syms_15; SGroup 7990 14 syms_17]);
   (117017, 12, [AGroup 17132 1 [sym_kDispId]; AGroup 17134 1 [sym_kPublic]; AGroup 17136 1 [sym_kExternal];
     AGroup 17138 1 [sym_kMessage]; AGroup 17140 1 [sym_kDeprecated];
     AGroup 17142 1 [sym_kExport]; AGroup 17144 1 [sym_kAlias];
     SGroup 4005 1 [aux_sym__procAttribute_repeat1]; SGroup 13546 1 [sym_procAttribute];
     SGroup 13586 1 [sym_procExternal]; AGroup 3 3 syms_1; AGroup 1016 39 syms_33]);
   (117094, 5, [AGroup 5 1 [sym_ppDirective]; AGroup 3 2 syms_5; AGroup 15488 7 syms_34;
     AGroup 15403 18 syms_36; AGroup 15486 24 syms_128]);
   (117157, 22, [AGroup 5 1 [sym_ppDirective]; AGroup 15576 1 [sym_kElse]; AGroup 16071 1 [anon_sym_LBRACK];
     AGroup 16073 1 [anon_sym_LPAREN]; AGroup 16077 1 [anon_sym_POUND];
     AGroup 16091 1 [sym_kSpecialize]; AGroup 16095 1 [sym_kIf]; AGroup 16097 1 [sym_kInherited];
     AGroup 17710 1 [sym_kString]; AGroup 17798 1 [anon_sym_SEMI]; AGroup 3 2 syms_5;
     AGroup 16075 2 syms_6; AGroup 16079 2 syms_7; AGroup 16081 2 syms_8; AGroup 16083 2 syms_9;
     AGroup 16085 2 syms_10; AGroup 16093 2 syms_11; SGroup 8930 2 syms_12;
     SGroup 7257 3 syms_13; SGroup 9433 4 syms_14; AGroup 16087 5 syms_15; SGroup 8310 14 syms_17]);
   (117254, 5, [AGroup 5 1 [sym_ppDirective]; AGroup 3 2 syms_5; AGroup 15496 7 syms_34;
     AGroup 15403 18 syms_36; AGroup 15494 24 syms_128]);
   (117317, 12, [AGroup 17132 1 [sym_kDispId]; AGroup 17134 1 [sym_kPublic]; AGroup 17136 1 [sym_kExternal];
     AGroup 17138 1 [sym_kMessage]; AGroup 17140 1 [sym_kDeprecated];
     AGroup 17142 1 [sym_kExport]; AGroup 17144 1 [sym_kAlias];
     SGroup 4005 1 [aux_sym__procAttribute_repeat1]; SGroup 13039 1 [sym_procAttribute];
     SGroup 13040 1 [sym_procExternal]; AGroup 3 3 syms_1; AGroup 1016 39 syms_33]);
   (117394, 33, [AGroup 5 1 [sym_ppDirective]; AGroup 13347 1 [anon_sym_LBRACK];
     AGroup 13351 1 [aux_sym_ppUsesBlock_token1]; AGroup 13365 1 [sym_identifier];
     AGroup 13367 1 [sym_kGeneric]; AGroup 13369 1 [sym_kOperator]; AGroup 13373 1 [sym_kStrict];
     AGroup 13377 1 [sym_kCase]; AGroup 13379 1 [sym_kClass]; AGroup 13391 1 [sym_kProperty];
     AGroup 13395 1 [sym_kType]; AGroup 16916 1 [anon_sym_SEMI];
     AGroup 16918 1 [anon_sym_LPAREN]; AGroup 16924 1 [sym_kEnd]; AGroup 17800 1 [sym_kName];
     SGroup 2 1 [sym__ppIf]; SGroup 6354 1 [sym__visibility]; SGroup 9779 1 [sym_ppBlock];
     SGroup 9835 1 [sym__declOperator]; SGroup 10247 1 [sym__declProc];
     SGroup 10617 1 [sym_rttiAttributes]; SGroup 10730 1 [aux_sym_rttiAttributes_repeat2];
     SGroup 13987 1 [aux_sym_genericArg_repeat1]; SGroup 14434 1 [sym_declVariant];
     SGroup 15590 1 [sym__declClass]; AGroup 3 2 syms_5; AGroup 13381 2 syms_65;
     AGroup 13393 2 syms_66; SGroup 5685 2 syms_68; SGroup 10490 3 syms_69;
     AGroup 13383 4 syms_3; AGroup 13371 6 syms_70; SGroup 6150 6 syms_71]);
   (117513, 21, [AGroup 5 1 [sym_ppDirective]; AGroup 15647 1 [anon_sym_LBRACK];
     AGroup 15653 1 [anon_sym_POUND]; AGroup 15667 1 [sym_kSpecialize]; AGroup 15671 1 [sym_kIf];
     AGroup 15673 1 [sym_kInherited]; AGroup 15675 1 [sym_kString];
     AGroup 15745 1 [anon_sym_LPAREN]; AGroup 3 2 syms_5; AGroup 14747 2 syms_129;
     AGroup 15651 2 syms_6; AGroup 15655 2 syms_7; AGroup 15657 2 syms_8; AGroup 15659 2 syms_9;
     AGroup 15661 2 syms_10; AGroup 15669 2 syms_11; SGroup 8129 2 syms_12;
     SGroup 7100 3 syms_13; SGroup 9693 4 syms_14; AGroup 15663 5 syms_15; SGroup 7786 14 syms_17]);
   (117608, 5, [AGroup 5 1 [sym_ppDirective]; AGroup 3 2 syms_5; AGroup 15401 7 syms_34;
     AGroup 15403 18 syms_36; AGroup 15399 24 syms_128]);
   (117671, 23, [AGroup 5 1 [sym_ppDirective]; AGroup 15647 1 [anon_sym_LBRACK];
     AGroup 15653 1 [anon_sym_POUND]; AGroup 15667 1 [sym_kSpecialize];
     AGroup 15673 1 [sym_kInherited]; AGroup 15675 1 [sym_kString];
     AGroup 15745 1 [anon_sym_LPAREN]; AGroup 15755 1 [sym_kIf];
     AGroup 17782 1 [anon_sym_RBRACK]; AGroup 17786 1 [sym_identifier];
     SGroup 4124 1 [aux_sym_rttiAttributes_repeat1]; AGroup 3 2 syms_5; AGroup 15651 2 syms_6;
     AGroup 15655 2 syms_7; AGroup 15657 2 syms_8; AGroup 15669 2 syms_11; AGroup 15747 2 syms_9;
     AGroup 15749 2 syms_10; SGroup 8129 2 syms_12; SGroup 7100 3 syms_13;
     AGroup 17802 4 syms_57; SGroup 10347 4 syms_14; SGroup 8605 14 syms_17]);
   (117770, 12, [AGroup 17132 1 [sym_kDispId]; AGroup 17134 1 [sym_kPublic]; AGroup 17136 1 [sym_kExternal];
     AGroup 17138 1 [sym_kMessage]; AGroup 17140 1 [sym_kDeprecated];
     AGroup 17142 1 [sym_kExport]; AGroup 17144 1 [sym_kAlias];
     SGroup 4005 1 [aux_sym__procAttribute_repeat1]; SGroup 13115 1 [sym_procAttribute];
     SGroup 13116 1 [sym_procExternal]; AGroup 3 3 syms_1; AGroup 1016 39 syms_33]);
   (117847, 22, [AGroup 5 1 [sym_ppDirective]; AGroup 15011 1 [anon_sym_LBRACK];
     AGroup 15013 1 [anon_sym_LPAREN]; AGroup 15017 1 [anon_sym_POUND];
     AGroup 15029 1 [sym_kSpecialize]; AGroup 15035 1 [sym_kIf]; AGroup 15037 1 [sym_kInherited];
     AGroup 15039 1 [sym_kString]; SGroup 3809 1 [aux_sym_caseLabel_repeat1];
     SGroup 13032 1 [sym_range]; AGroup 3 2 syms_5; AGroup 15015 2 syms_6; AGroup 15019 2 syms_7;
     AGroup 15021 2 syms_8; AGroup 15023 2 syms_9; AGroup 15025 2 syms_10;
     AGroup 15033 2 syms_11; SGroup 8466 2 syms_12; SGroup 7201 3 syms_13; SGroup 9505 4 syms_14;
     AGroup 15027 5 syms_15; SGroup 7990 14 syms_17]);
   (117944, 22, [AGroup 5 1 [sym_ppDirective]; AGroup 15647 1 [anon_sym_LBRACK];
     AGroup 15653 1 [anon_sym_POUND]; AGroup 15667 1 [sym_kSpecialize]; AGroup 15671 1 [sym_kIf];
     AGroup 15673 1 [sym_kInherited]; AGroup 15745 1 [anon_sym_LPAREN];
     AGroup 17076 1 [sym_kString]; SGroup 4095 1 [aux_sym_exprArgs_repeat1];
     SGroup 14341 1 [sym_exprArgs]; AGroup 3 2 syms_5; AGroup 15651 2 syms_6;
     AGroup 15655 2 syms_7; AGroup 15657 2 syms_8; AGroup 15659 2 syms_9; AGroup 15661 2 syms_10;
     AGroup 15669 2 syms_11; SGroup 8129 2 syms_12; SGroup 7100 3 syms_13; SGroup 8456 4 syms_14;
     AGroup 15663 5 syms_15; SGroup 7786 14 syms_17]);
   (118041, 5, [AGroup 5 1 [sym_ppDirective]; AGroup 3 2 syms_5; AGroup 15504 4 syms_25;
     AGroup 15403 18 syms_36; AGroup 15502 27 syms_123]);
   (118104, 5, [AGroup 5 1 [sym_ppDirective]; AGroup 3 2 syms_5; AGroup 15484 4 syms_25;
     AGroup 15403 18 syms_36; AGroup 15482 27 syms_123]);
   (118167, 12, [AGroup 17132 1 [sym_kDispId]; AGroup 17134 1 [sym_kPublic]; AGroup 17136 1 [sym_kExternal];
     AGroup 17138 1 [sym_kMessage]; AGroup 17140 1 [sym_kDeprecated];
     AGroup 17142 1 [sym_kExport]; AGroup 17144 1 [sym_kAlias];
     SGroup 4005 1 [aux_sym__procAttribute_repeat1]; SGroup 13191 1 [sym_procAttribute];
     SGroup 13192 1 [sym_procExternal]; AGroup 3 3 syms_1; AGroup 1016 39 syms_33]);
   (118244, 5, [AGroup 5 1 [sym_ppDirective]; AGroup 3 2 syms_5; AGroup 15504 7 syms_34;
     AGroup 15403 18 syms_36; AGroup 15502 24 syms_128]);
   (118307, 5, [AGroup 5 1 [sym_ppDirective]; AGroup 3 2 syms_5; AGroup 15484 7 syms_34;
     AGroup 15403 18 syms_36; AGroup 15482 24 syms_128]);
   (118370, 12, [AGroup 17132 1 [sym_kDispId]; AGroup 17134 1 [sym_kPublic]; AGroup 17136 1 [sym_kExternal];
     AGroup 17138 1 [sym_kMessage]; AGroup 17140 1 [sym_kDeprecated];
     AGroup 17142 1 [sym_kExport]; AGroup 17144 1 [sym_kAlias];
     SGroup 4005 1 [aux_sym__procAttribute_repeat1]; SGroup 13233 1 [sym_procAttribute];
     SGroup 13234 1 [sym_procExternal]; AGroup 3 3 syms_1; AGroup 1016 39 syms_33]);
   (118447, 12, [AGroup 17132 1 [sym_kDispId]; AGroup 17134 1 [sym_kPublic]; AGroup 17136 1 [sym_kExternal];
     AGroup 17138 1 [sym_kMessage]; AGroup 17140 1 [sym_kDeprecated];
     AGroup 17142 1 [sym_kExport]; AGroup 17144 1 [sym_kAlias];
     SGroup 4005 1 [aux_sym__procAttribute_repeat1]; SGroup 13263 1 [sym_procAttribute];
     SGroup 13264 1 [sym_procExternal]; AGroup 3 3 syms_1; AGroup 1016 39 syms_33]);
   (118524, 12, [AGroup 17132 1 [sym_kDispId]; AGroup 17134 1 [sym_kPublic]; AGroup 17136 1 [sym_kExternal];
     AGroup 17138 1 [sym_kMessage]; AGroup 17140 1 [sym_kDeprecated];
     AGroup 17142 1 [sym_kExport]; AGroup 17144 1 [sym_kAlias];
     SGroup 4005 1 [aux_sym__procAttribute_repeat1]; SGroup 13289 1 [sym_procAttribute];
     SGroup 13290 1 [sym_procExternal]; AGroup 3 3 syms_1; AGroup 1016 39 syms_33]);
   (118601, 12, [AGroup 17132 1 [sym_kDispId]; AGroup 17134 1 [sym_kPublic]; AGroup 17136 1 [sym_kExternal];
     AGroup 17138 1 [sym_kMessage]; AGroup 17140 1 [sym_kDeprecated];
     AGroup 17142 1 [sym_kExport]; AGroup 17144 1 [sym_kAlias];
     SGroup 4005 1 [aux_sym__procAttribute_repeat1]; SGroup 13310 1 [sym_procAttribute];
     SGroup 13311 1 [sym_procExternal]; AGroup 3 3 syms_1; AGroup 1016 39 syms_33]);
   (118678, 12, [AGroup 17132 1 [sym_kDispId]; AGroup 17134 1 [sym_kPublic]; AGroup 17136 1 [sym_kExternal];
     AGroup 17138 1 [sym_kMessage]; AGroup 17140 1 [sym_kDeprecated];
     AGroup 17142 1 [sym_kExport]; AGroup 17144 1 [sym_kAlias];
     SGroup 4005 1 [aux_sym__procAttribute_repeat1]; SGroup 13332 1 [sym_procAttribute];
     SGroup 13333 1 [sym_procExternal]; AGroup 3 3 syms_1; AGroup 1016 39 syms_33]);
   (118755, 12, [AGroup 17132 1 [sym_kDispId]; AGroup 17134 1 [sym_kPublic]; AGroup 17136 1 [sym_kExternal];
     AGroup 17138 1 [sym_kMessage]; AGroup 17140 1 [sym_kDeprecated];
     AGroup 17142 1 [sym_kExport]; AGroup 17144 1 [sym_kAlias];
     SGroup 4005 1 [aux_sym__procAttribute_repeat1]; SGroup 13347 1 [sym_procAttribute];
     SGroup 13348 1 [sym_procExternal]; AGroup 3 3 syms_1; AGroup 1016 39 syms_33]);
   (118832, 12, [AGroup 17132 1 [sym_kDispId]; AGroup 17134 1 [sym_kPublic]; AGroup 17136 1 [sym_kExternal];
     AGroup 17138 1 [sym_kMessage]; AGroup 17140 1 [sym_kDeprecated];
     AGroup 17142 1 [sym_kExport]; AGroup 17144 1 [sym_kAlias];
     SGroup 4005 1 [aux_sym__procAttribute_repeat1]; SGroup 13365 1 [sym_procAttribute];
     SGroup 13366 1 [sym_procExternal]; AGroup 3 3 syms_1; AGroup 1016 39 syms_33]);
   (118909, 12, [AGroup 17132 1 [sym_kDispId]; AGroup 17134 1 [sym_kPublic]; AGroup 17136 1 [sym_kExternal];
     AGroup 17138 1 [sym_kMessage]; AGroup 17140 1 [sym_kDeprecated];
     AGroup 17142 1 [sym_kExport]; AGroup 17144 1 [sym_kAlias];
     SGroup 4005 1 [aux_sym__procAttribute_repeat1]; SGroup 13381 1 [sym_procAttribute];
     SGroup 13382 1 [sym_procExternal]; AGroup 3 3 syms_1; AGroup 1016 39 syms_33]);
   (118986, 12, [AGroup 17132 1 [sym_kDispId]; AGroup 17134 1 [sym_kPublic]; AGroup 17136 1 [sym_kExternal];
     AGroup 17138 1 [sym_kMessage]; AGroup 17140 1 [sym_kDeprecated];
     AGroup 17142 1 [sym_kExport]; AGroup 17144 1 [sym_kAlias];
     SGroup 4005 1 [aux_sym__procAttribute_repeat1]; SGroup 13397 1 [sym_procAttribute];
     SGroup 13398 1 [sym_procExternal]; AGroup 3 3 syms_1; AGroup 1016 39 syms_33]);
   (119063, 12, [AGroup 17132 1 [sym_kDispId]; AGroup 17134 1 [sym_kPublic]; AGroup 17136 1 [sym_kExternal];
     AGroup 17138 1 [sym_kMessage]; AGroup 17140 1 [sym_kDeprecated];
     AGroup 17142 1 [sym_kExport]; AGroup 17144 1 [sym_kAlias];
     SGroup 4005 1 [aux_sym__procAttribute_repeat1]; SGroup 13413 1 [sym_procAttribute];
     SGroup 13414 1 [sym_procExternal]; AGroup 3 3 syms_1; AGroup 1016 39 syms_33]);
   (119140, 12, [AGroup 17132 1 [sym_kDispId]; AGroup 17134 1 [sym_kPublic]; AGroup 17136 1 [sym_kExternal];
     AGroup 17138 1 [sym_kMessage]; AGroup 17140 1 [sym_kDeprecated];
     AGroup 17142 1 [sym_kExport]; AGroup 17144 1 [sym_kAlias];
     SGroup 4005 1 [aux_sym__procAttribute_repeat1]; SGroup 13426 1 [sym_procAttribute];
     SGroup 13427 1 [sym_procExternal]; AGroup 3 3 syms_1; AGroup 1016 39 syms_33]);
   (119217, 12, [AGroup 17132 1 [sym_kDispId]; AGroup 17134 1 [sym_kPublic]; AGroup 17136 1 [sym_kExternal];
     AGroup 17138 1 [sym_kMessage]; AGroup 17140 1 [sym_kDeprecated];
     AGroup 17142 1 [sym_kExport]; AGroup 17144 1 [sym_kAlias];
     SGroup 4005 1 [aux_sym__procAttribute_repeat1]; SGroup 13444 1 [sym_procAttribute];
     SGroup 13445 1 [sym_procExternal]; AGroup 3 3 syms_1; AGroup 1016 39 syms_33]);
   (119294, 12, [AGroup 17132 1 [sym_kDispId]; AGroup 17134 1 [sym_kPublic]; AGroup 17136 1 [sym_kExternal];
     AGroup 17138 1 [sym_kMessage]; AGroup 17140 1 [sym_kDeprecated];
     AGroup 17142 1 [sym_kExport]; AGroup 17144 1 [sym_kAlias];
     SGroup 4005 1 [aux_sym__procAttribute_repeat1]; SGroup 13460 1 [sym_procAttribute];
     SGroup 13461 1 [sym_procExternal]; AGroup 3 3 syms_1; AGroup 1016 39 syms_33]);
   (119371, 21, [AGroup 5 1 [sym_ppDirective]; AGroup 15677 1 [anon_sym_LBRACK];
     AGroup 15679 1 [anon_sym_LPAREN]; AGroup 15683 1 [anon_sym_POUND];
     AGroup 15697 1 [sym_kSpecialize]; AGroup 15701 1 [sym_kIf]; AGroup 15703 1 [sym_kInherited];
     AGroup 17206 1 [sym_kString]; AGroup 3 2 syms_5; AGroup 14765 2 syms_44;
     AGroup 15681 2 syms_6; AGroup 15685 2 syms_7; AGroup 15687 2 syms_8; AGroup 15689 2 syms_9;
     AGroup 15691 2 syms_10; AGroup 15699 2 syms_11; SGroup 8792 2 syms_12;
     SGroup 7321 3 syms_13; SGroup 9623 4 syms_14; AGroup 15693 5 syms_15; SGroup 8443 14 syms_17]);
   (119466, 5, [AGroup 5 1 [sym_ppDirective]; AGroup 3 2 syms_5; AGroup 15473 4 syms_25;
     AGroup 15403 18 syms_36; AGroup 15471 27 syms_123]);
   (119529, 11, [AGroup 17807 1 [sym_kDispId]; AGroup 17810 1 [sym_kPublic]; AGroup 17813 1 [sym_kExternal];
     AGroup 17816 1 [sym_kMessage]; AGroup 17819 1 [sym_kDeprecated];
     AGroup 17822 1 [sym_kExport]; AGroup 17825 1 [sym_kAlias];
     SGroup 4005 1 [aux_sym__procAttribute_repeat1]; SGroup 15536 2 syms_107; AGroup 3 3 syms_1;
     AGroup 17804 39 syms_33]);
   (119604, 22, [AGroup 5 1 [sym_ppDirective]; AGroup 15011 1 [anon_sym_LBRACK];
     AGroup 15013 1 [anon_sym_LPAREN]; AGroup 15017 1 [anon_sym_POUND];
     AGroup 15029 1 [sym_kSpecialize]; AGroup 15035 1 [sym_kIf]; AGroup 15037 1 [sym_kInherited];
     AGroup 15039 1 [sym_kString]; SGroup 3809 1 [aux_sym_caseLabel_repeat1];
     SGroup 13446 1 [sym_range]; AGroup 3 2 syms_5; AGroup 15015 2 syms_6; AGroup 15019 2 syms_7;
     AGroup 15021 2 syms_8; AGroup 15023 2 syms_9; AGroup 15025 2 syms_10;
     AGroup 15033 2 syms_11; SGroup 8466 2 syms_12; SGroup 7201 3 syms_13; SGroup 9428 4 syms_14;
     AGroup 15027 5 syms_15; SGroup 7990 14 syms_17]);
   (119701, 21, [AGroup 5 1 [sym_ppDirective]; AGroup 15647 1 [anon_sym_LBRACK];
     AGroup 15653 1 [anon_sym_POUND]; AGroup 15667 1 [sym_kSpecialize]; AGroup 15671 1 [sym_kIf];
     AGroup 15673 1 [sym_kInherited]; AGroup 15675 1 [sym_kString];
     AGroup 15745 1 [anon_sym_LPAREN]; AGroup 3 2 syms_5; AGroup 15651 2 syms_6;
     AGroup 15655 2 syms_7; AGroup 15657 2 syms_8; AGroup 15659 2 syms_9; AGroup 15661 2 syms_10;
     AGroup 15669 2 syms_11; AGroup 17204 2 syms_133; SGroup 8129 2 syms_12;
     SGroup 7100 3 syms_13; SGroup 9689 4 syms_14; AGroup 15663 5 syms_15; SGroup 7786 14 syms_17]);
   (119796, 22, [AGroup 5 1 [sym_ppDirective]; AGroup 15011 1 [anon_sym_LBRACK];
     AGroup 15013 1 [anon_sym_LPAREN]; AGroup 15017 1 [anon_sym_POUND];
     AGroup 15029 1 [sym_kSpecialize]; AGroup 15035 1 [sym_kIf]; AGroup 15037 1 [sym_kInherited];
     AGroup 15039 1 [sym_kString]; SGroup 3812 1 [aux_sym_declArray_repeat1];
     SGroup 13503 1 [sym_range]; AGroup 3 2 syms_5; AGroup 15015 2 syms_6; AGroup 15019 2 syms_7;
     AGroup 15021 2 syms_8; AGroup 15023 2 syms_9; AGroup 15025 2 syms_10;
     AGroup 15033 2 syms_11; SGroup 8466 2 syms_12; SGroup 7201 3 syms_13; SGroup 9409 4 syms_14;
     AGroup 15027 5 syms_15; SGroup 7990 14 syms_17]);
   (119893, 23, [AGroup 5 1 [sym_ppDirective]; AGroup 15647 1 [anon_sym_LBRACK];
     AGroup 15653 1 [anon_sym_POUND]; AGroup 15667 1 [sym_kSpecialize];
     AGroup 15673 1 [sym_kInherited]; AGroup 15675 1 [sym_kString];
     AGroup 15745 1 [anon_sym_LPAREN]; AGroup 15755 1 [sym_kIf];
     AGroup 17828 1 [anon_sym_RBRACK]; AGroup 17832 1 [sym_identifier];
     SGroup 4112 1 [aux_sym_rttiAttributes_repeat1]; AGroup 3 2 syms_5; AGroup 15651 2 syms_6;
     AGroup 15655 2 syms_7; AGroup 15657 2 syms_8; AGroup 15669 2 syms_11; AGroup 15747 2 syms_9;
     AGroup 15749 2 syms_10; SGroup 8129 2 syms_12; SGroup 7100 3 syms_13;
     AGroup 17830 4 syms_57; SGroup 10347 4 syms_14; SGroup 8631 14 syms_17]);
   (119992, 22, [AGroup 5 1 [sym_ppDirective]; AGroup 15011 1 [anon_sym_LBRACK];
     AGroup 15013 1 [anon_sym_LPAREN]; AGroup 15017 1 [anon_sym_POUND];
     AGroup 15029 1 [sym_kSpecialize]; AGroup 15035 1 [sym_kIf]; AGroup 15037 1 [sym_kInherited];
     AGroup 15039 1 [sym_kString]; SGroup 3809 1 [aux_sym_caseLabel_repeat1];
     SGroup 13245 1 [sym_range]; AGroup 3 2 syms_5; AGroup 15015 2 syms_6; AGroup 15019 2 syms_7;
     AGroup 15021 2 syms_8; AGroup 15023 2 syms_9; AGroup 15025 2 syms_10;
     AGroup 15033 2 syms_11; SGroup 8466 2 syms_12; SGroup 7201 3 syms_13; SGroup 9485 4 syms_14;
     AGroup 15027 5 syms_15; SGroup 7990 14 syms_17]);
   (120089, 22, [AGroup 5 1 [sym_ppDirective]; AGroup 15647 1 [anon_sym_LBRACK];
     AGroup 15653 1 [anon_sym_POUND]; AGroup 15667 1 [sym_kSpecialize]; AGroup 15671 1 [sym_kIf];
     AGroup 15673 1 [sym_kInherited]; AGroup 15745 1 [anon_sym_LPAREN];
     AGroup 17076 1 [sym_kString]; SGroup 4095 1 [aux_sym_exprArgs_repeat1];
     SGroup 15843 1 [sym_exprArgs]; AGroup 3 2 syms_5; AGroup 15651 2 syms_6;
     AGroup 15655 2 syms_7; AGroup 15657 2 syms_8; AGroup 15659 2 syms_9; AGroup 15661 2 syms_10;
     AGroup 15669 2 syms_11; SGroup 8129 2 syms_12; SGroup 7100 3 syms_13; SGroup 8456 4 syms_14;
     AGroup 15663 5 syms_15; SGroup 7786 14 syms_17]);
   (120186, 22, [AGroup 5 1 [sym_ppDirective]; AGroup 15011 1 [anon_sym_LBRACK];
     AGroup 15013 1 [anon_sym_LPAREN]; AGroup 15017 1 [anon_sym_POUND];
     AGroup 15029 1 [sym_kSpecialize]; AGroup 15035 1 [sym_kIf]; AGroup 15037 1 [sym_kInherited];
     AGroup 15039 1 [sym_kString]; SGroup 3809 1 [aux_sym_caseLabel_repeat1];
     SGroup 13817 1 [sym_range]; AGroup 3 2 syms_5; AGroup 15015 2 syms_6; AGroup 15019 2 syms_7;
     AGroup 15021 2 syms_8; AGroup 15023 2 syms_9; AGroup 15025 2 syms_10;
     AGroup 15033 2 syms_11; SGroup 8466 2 syms_12; SGroup 7201 3 syms_13; SGroup 9396 4 syms_14;
     AGroup 15027 5 syms_15; SGroup 7990 14 syms_17]);
   (120283, 22, [AGroup 5 1 [sym_ppDirective]; AGroup 15011 1 [anon_sym_LBRACK];
     AGroup 15013 1 [anon_sym_LPAREN]; AGroup 15017 1 [anon_sym_POUND];
     AGroup 15029 1 [sym_kSpecialize]; AGroup 15035 1 [sym_kIf]; AGroup 15037 1 [sym_kInherited];
     AGroup 15039 1 [sym_kString]; SGroup 3809 1 [aux_sym_caseLabel_repeat1];
     SGroup 13844 1 [sym_range]; AGroup 3 2 syms_5; AGroup 15015 2 syms_6; AGroup 15019 2 syms_7;
     AGroup 15021 2 syms_8; AGroup 15023 2 syms_9; AGroup 15025 2 syms_10;
     AGroup 15033 2 syms_11; SGroup 8466 2 syms_12; SGroup 7201 3 syms_13; SGroup 9501 4 syms_14;
     AGroup 15027 5 syms_15; SGroup 7990 14 syms_17]);
   (120380, 22, [AGroup 5 1 [sym_ppDirective]; AGroup 15647 1 [anon_sym_LBRACK];
     AGroup 15653 1 [anon_sym_POUND]; AGroup 15667 1 [sym_kSpecialize]; AGroup 15671 1 [sym_kIf];
     AGroup 15673 1 [sym_kInherited]; AGroup 15745 1 [anon_sym_LPAREN];
     AGroup 17076 1 [sym_kString]; SGroup 4095 1 [aux_sym_exprArgs_repeat1];
     SGroup 15653 1 [sym_exprArgs]; AGroup 3 2 syms_5; AGroup 15651 2 syms_6;
     AGroup 15655 2 syms_7; AGroup 15657 2 syms_8; AGroup 15659 2 syms_9; AGroup 15661 2 syms_10;
     AGroup 15669 2 syms_11; SGroup 8129 2 syms_12; SGroup 7100 3 syms_13; SGroup 8456 4 syms_14;
     AGroup 15663 5 syms_15; SGroup 7786 14 syms_17]);
   (120477, 3, [AGroup 5 1 [sym_ppDirective]; AGroup 3 2 syms_5; AGroup 9946 49 syms_127]);
   (120536, 22, [AGroup 5 1 [sym_ppDirective]; AGroup 15576 1 [sym_kElse]; AGroup 16071 1 [anon_sym_LBRACK];
     AGroup 16073 1 [anon_sym_LPAREN]; AGroup 16077 1 [anon_sym_POUND];
     AGroup 16091 1 [sym_kSpecialize]; AGroup 16095 1 [sym_kIf]; AGroup 16097 1 [sym_kInherited];
     AGroup 17710 1 [sym_kString]; AGroup 17834 1 [anon_sym_SEMI]; AGroup 3 2 syms_5;
     AGroup 16075 2 syms_6; AGroup 16079 2 syms_7; AGroup 16081 2 syms_8; AGroup 16083 2 syms_9;
     AGroup 16085 2 syms_10; AGroup 16093 2 syms_11; SGroup 8930 2 syms_12;
     SGroup 7257 3 syms_13; SGroup 9538 4 syms_14; AGroup 16087 5 syms_15; SGroup 8310 14 syms_17]);
   (120633, 23, [AGroup 5 1 [sym_ppDirective]; AGroup 15647 1 [anon_sym_LBRACK];
     AGroup 15653 1 [anon_sym_POUND]; AGroup 15667 1 [sym_kSpecialize];
     AGroup 15673 1 [sym_kInherited]; AGroup 15675 1 [sym_kString];
     AGroup 15745 1 [anon_sym_LPAREN]; AGroup 15755 1 [sym_kIf];
     AGroup 17836 1 [anon_sym_RBRACK]; AGroup 17840 1 [sym_identifier];
     SGroup 4107 1 [aux_sym_rttiAttributes_repeat1]; AGroup 3 2 syms_5; AGroup 15651 2 syms_6;
     AGroup 15655 2 syms_7; AGroup 15657 2 syms_8; AGroup 15669 2 syms_11; AGroup 15747 2 syms_9;
     AGroup 15749 2 syms_10; SGroup 8129 2 syms_12; SGroup 7100 3 syms_13;
     AGroup 17838 4 syms_57; SGroup 10347 4 syms_14; SGroup 8621 14 syms_17]);
   (120732, 5, [AGroup 5 1 [sym_ppDirective]; AGroup 3 2 syms_5; AGroup 15473 7 syms_34;
     AGroup 15403 18 syms_36; AGroup 15471 24 syms_125]);
   (120795, 5, [AGroup 5 1 [sym_ppDirective]; AGroup 3 2 syms_5; AGroup 15492 4 syms_25;
     AGroup 15403 18 syms_36; AGroup 15490 27 syms_123]);
   (120858, 23, [AGroup 5 1 [sym_ppDirective]; AGroup 15647 1 [anon_sym_LBRACK];
     AGroup 15653 1 [anon_sym_POUND]; AGroup 15667 1 [sym_kSpecialize];
     AGroup 15673 1 [sym_kInherited]; AGroup 15675 1 [sym_kString];
     AGroup 15745 1 [anon_sym_LPAREN]; AGroup 15755 1 [sym_kIf];
     AGroup 17842 1 [anon_sym_RBRACK]; AGroup 17846 1 [sym_identifier];
     SGroup 4099 1 [aux_sym_rttiAttributes_repeat1]; AGroup 3 2 syms_5; AGroup 15651 2 syms_6;
     AGroup 15655 2 syms_7; AGroup 15657 2 syms_8; AGroup 15669 2 syms_11; AGroup 15747 2 syms_9;
     AGroup 15749 2 syms_10; SGroup 8129 2 syms_12; SGroup 7100 3 syms_13;
     AGroup 17844 4 syms_57; SGroup 10347 4 syms_14; SGroup 8606 14 syms_17]);
   (120957, 5, [AGroup 5 1 [sym_ppDirective]; AGroup 3 2 syms_5; AGroup 15401 4 syms_25;
     AGroup 15403 18 syms_36; AGroup 15399 27 syms_123]);
   (121020, 5, [AGroup 5 1 [sym_ppDirective]; AGroup 3 2 syms_5; AGroup 15439 4 syms_25;
     AGroup 15403 18 syms_36; AGroup 15437 27 syms_123]);
   (121083, 22, [AGroup 5 1 [sym_ppDirective]; AGroup 15576 1 [sym_kElse]; AGroup 16071 1 [anon_sym_LBRACK];
     AGroup 16073 1 [anon_sym_LPAREN]; AGroup 16077 1 [anon_sym_POUND];
     AGroup 16091 1 [sym_kSpecialize]; AGroup 16095 1 [sym_kIf]; AGroup 16097 1 [sym_kInherited];
     AGroup 17710 1 [sym_kString]; AGroup 17848 1 [anon_sym_SEMI]; AGroup 3 2 syms_5;
     AGroup 16075 2 syms_6; AGroup 16079 2 syms_7; AGroup 16081 2 syms_8; AGroup 16083 2 syms_9;
     AGroup 16085 2 syms_10; AGroup 16093 2 syms_11; SGroup 8930 2 syms_12;
     SGroup 7257 3 syms_13; SGroup 9437 4 syms_14; AGroup 16087 5 syms_15; SGroup 8310 14 syms_17]);
   (121180, 3, [AGroup 5 1 [sym_ppDirective]; AGroup 3 2 syms_5; AGroup 9810 49 syms_127]);
   (121239, 29, [AGroup 5 1 [sym_ppDirective]; AGroup 14853 1 [anon_sym_POUND];
     AGroup 15299 1 [anon_sym_LPAREN]; AGroup 15301 1 [sym_kHat];
     AGroup 15303 1 [sym_ppFragmentExpr]; AGroup 15305 1 [sym_identifier];
     AGroup 15307 1 [sym_kSpecialize]; AGroup 15309 1 [sym_kReference];
     AGroup 15311 1 [sym_kArray]; AGroup 15313 1 [sym_kClass]; AGroup 15317 1 [sym_kFile];
     AGroup 15321 1 [sym_kPacked]; AGroup 15323 1 [sym_kRecord]; AGroup 15325 1 [sym_kSet];
     AGroup 15327 1 [sym_kString]; SGroup 10605 1 [sym__subRangeUnary];
     SGroup 10614 1 [sym__subRangeBinary]; SGroup 10620 1 [sym__subRangeCall]; AGroup 3 2 syms_5;
     AGroup 14851 2 syms_6; AGroup 14855 2 syms_7; AGroup 14857 2 syms_8; AGroup 14861 2 syms_9;
     AGroup 15319 2 syms_11; SGroup 10647 2 syms_12; SGroup 10482 3 syms_13;
     SGroup 11297 3 syms_30; SGroup 10560 4 syms_31; SGroup 13872 10 syms_32]);
   (121350, 5, [AGroup 5 1 [sym_ppDirective]; AGroup 3 2 syms_5; AGroup 15488 4 syms_25;
     AGroup 15403 18 syms_36; AGroup 15486 27 syms_123]);
   (121413, 22, [AGroup 5 1 [sym_ppDirective]; AGroup 15647 1 [anon_sym_LBRACK];
     AGroup 15653 1 [anon_sym_POUND]; AGroup 15667 1 [sym_kSpecialize];
     AGroup 15673 1 [sym_kInherited]; AGroup 15675 1 [sym_kString];
     AGroup 15745 1 [anon_sym_LPAREN]; AGroup 15755 1 [sym_kIf];
     AGroup 17850 1 [anon_sym_RBRACK]; SGroup 4120 1 [aux_sym_rttiAttributes_repeat1];
     AGroup 3 2 syms_5; AGroup 15651 2 syms_6; AGroup 15655 2 syms_7; AGroup 15657 2 syms_8;
     AGroup 15669 2 syms_11; AGroup 15747 2 syms_9; AGroup 15749 2 syms_10;
     SGroup 8129 2 syms_12; SGroup 7100 3 syms_13; SGroup 10347 4 syms_14;
     AGroup 17852 5 syms_15; SGroup 8645 14 syms_17]);
   (121510, 22, [AGroup 5 1 [sym_ppDirective]; AGroup 15576 1 [sym_kElse]; AGroup 16071 1 [anon_sym_LBRACK];
     AGroup 16073 1 [anon_sym_LPAREN]; AGroup 16077 1 [anon_sym_POUND];
     AGroup 16091 1 [sym_kSpecialize]; AGroup 16095 1 [sym_kIf]; AGroup 16097 1 [sym_kInherited];
     AGroup 17710 1 [sym_kString]; AGroup 17854 1 [anon_sym_SEMI]; AGroup 3 2 syms_5;
     AGroup 16075 2 syms_6; AGroup 16079 2 syms_7; AGroup 16081 2 syms_8; AGroup 16083 2 syms_9;
     AGroup 16085 2 syms_10; AGroup 16093 2 syms_11; SGroup 8930 2 syms_12;
     SGroup 7257 3 syms_13; SGroup 9557 4 syms_14; AGroup 16087 5 syms_15; SGroup 8310 14 syms_17]);
   (121607, 22, [AGroup 5 1 [sym_ppDirective]; AGroup 15011 1 [anon_sym_LBRACK];
     AGroup 15013 1 [anon_sym_LPAREN]; AGroup 15017 1 [anon_sym_POUND];
     AGroup 15029 1 [sym_kSpecialize]; AGroup 15035 1 [sym_kIf]; AGroup 15037 1 [sym_kInherited];
     AGroup 15039 1 [sym_kString]; SGroup 3809 1 [aux_sym_caseLabel_repeat1];
     SGroup 13592 1 [sym_range]; AGroup 3 2 syms_5; AGroup 15015 2 syms_6; AGroup 15019 2 syms_7;
     AGroup 15021 2 syms_8; AGroup 15023 2 syms_9; AGroup 15025 2 syms_10;
     AGroup 15033 2 syms_11; SGroup 8466 2 syms_12; SGroup 7201 3 syms_13; SGroup 9608 4 syms_14;
     AGroup 15027 5 syms_15; SGroup 7990 14 syms_17]);
   (121704, 3, [AGroup 5 1 [sym_ppDirective]; AGroup 3 2 syms_5; AGroup 9850 49 syms_127]);
   (121763, 22, [AGroup 5 1 [sym_ppDirective]; AGroup 15011 1 [anon_sym_LBRACK];
     AGroup 15013 1 [anon_sym_LPAREN]; AGroup 15017 1 [anon_sym_POUND];
     AGroup 15029 1 [sym_kSpecialize]; AGroup 15035 1 [sym_kIf]; AGroup 15037 1 [sym_kInherited];
     AGroup 15039 1 [sym_kString]; SGroup 3809 1 [aux_sym_caseLabel_repeat1];
     SGroup 13752 1 [sym_range]; AGroup 3 2 syms_5; AGroup 15015 2 syms_6; AGroup 15019 2 syms_7;
     AGroup 15021 2 syms_8; AGroup 15023 2 syms_9; AGroup 15025 2 syms_10;
     AGroup 15033 2 syms_11; SGroup 8466 2 syms_12; SGroup 7201 3 syms_13; SGroup 9614 4 syms_14;
     AGroup 15027 5 syms_15; SGroup 7990 14 syms_17]);
   (121860, 3, [AGroup 5 1 [sym_ppDirective]; AGroup 3 2 syms_5; AGroup 9974 49 syms_127]);
   (121919, 22, [AGroup 5 1 [sym_ppDirective]; AGroup 15576 1 [sym_kElse]; AGroup 16071 1 [anon_sym_LBRACK];
     AGroup 16073 1 [anon_sym_LPAREN]; AGroup 16077 1 [anon_sym_POUND];
     AGroup 16091 1 [sym_kSpecialize]; AGroup 16095 1 [sym_kIf]; AGroup 16097 1 [sym_kInherited];
     AGroup 17710 1 [sym_kString]; AGroup 17856 1 [anon_sym_SEMI]; AGroup 3 2 syms_5;
     AGroup 16075 2 syms_6; AGroup 16079 2 syms_7; AGroup 16081 2 syms_8; AGroup 16083 2 syms_9;
     AGroup 16085 2 syms_10; AGroup 16093 2 syms_11; SGroup 8930 2 syms_12;
     SGroup 7257 3 syms_13; SGroup 9393 4 syms_14; AGroup 16087 5 syms_15; SGroup 8310 14 syms_17]);
   (122016, 22, [AGroup 5 1 [sym_ppDirective]; AGroup 15011 1 [anon_sym_LBRACK];
     AGroup 15013 1 [anon_sym_LPAREN]; AGroup 15017 1 [anon_sym_POUND];
     AGroup 15029 1 [sym_kSpecialize]; AGroup 15035 1 [sym_kIf]; AGroup 15037 1 [sym_kInherited];
     AGroup 15039 1 [sym_kString]; SGroup 3809 1 [aux_sym_caseLabel_repeat1];
     SGroup 14085 1 [sym_range]; AGroup 3 2 syms_5; AGroup 15015 2 syms_6; AGroup 15019 2 syms_7;
     AGroup 15021 2 syms_8; AGroup 15023 2 syms_9; AGroup 15025 2 syms_10;
     AGroup 15033 2 syms_11; SGroup 8466 2 syms_12; SGroup 7201 3 syms_13; SGroup 9510 4 syms_14;
     AGroup 15027 5 syms_15; SGroup 7990 14 syms_17]);
   (122113, 22, [AGroup 5 1 [sym_ppDirective]; AGroup 15647 1 [anon_sym_LBRACK];
     AGroup 15653 1 [anon_sym_POUND]; AGroup 15667 1 [sym_kSpecialize]; AGroup 15671 1 [sym_kIf];
     AGroup 15673 1 [sym_kInherited]; AGroup 15745 1 [anon_sym_LPAREN];
     AGroup 17076 1 [sym_kString]; SGroup 4095 1 [aux_sym_exprArgs_repeat1];
     SGroup 15973 1 [sym_exprArgs]; AGroup 3 2 syms_5; AGroup 15651 2 syms_6;
     AGroup 15655 2 syms_7; AGroup 15657 2 syms_8; AGroup 15659 2 syms_9; AGroup 15661 2 syms_10;
     AGroup 15669 2 syms_11; SGroup 8129 2 syms_12; SGroup 7100 3 syms_13; SGroup 8456 4 syms_14;
     AGroup 15663 5 syms_15; SGroup 7786 14 syms_17]);
   (122210, 33, [AGroup 5 1 [sym_ppDirective]; AGroup 13351 1 [aux_sym_ppUsesBlock_token1];
     AGroup 13365 1 [sym_identifier]; AGroup 13367 1 [sym_kGeneric];
     AGroup 13369 1 [sym_kOperator]; AGroup 13373 1 [sym_kStrict]; AGroup 13377 1 [sym_kCase];
     AGroup 13379 1 [sym_kClass]; AGroup 13391 1 [sym_kProperty]; AGroup 13395 1 [sym_kType];
     AGroup 17792 1 [anon_sym_LBRACK]; AGroup 17858 1 [anon_sym_SEMI];
     AGroup 17860 1 [anon_sym_LPAREN]; AGroup 17862 1 [sym_kEnd]; SGroup 2 1 [sym__ppIf];
     SGroup 5040 1 [sym_guid]; SGroup 6354 1 [sym__visibility]; SGroup 9779 1 [sym_ppBlock];
     SGroup 9835 1 [sym__declOperator]; SGroup 10247 1 [sym__declProc];
     SGroup 10617 1 [sym_rttiAttributes]; SGroup 10730 1 [aux_sym_rttiAttributes_repeat2];
     SGroup 13987 1 [aux_sym_genericArg_repeat1]; SGroup 14434 1 [sym_declVariant];
     SGroup 15479 1 [sym__declClass]; AGroup 3 2 syms_5; AGroup 13381 2 syms_65;
     AGroup 13393 2 syms_66; SGroup 5685 2 syms_68; SGroup 10490 3 syms_69;
     AGroup 13383 4 syms_3; AGroup 13371 6 syms_70; SGroup 6150 6 syms_71]);
   (122329, 22, [AGroup 5 1 [sym_ppDirective]; AGroup 15647 1 [anon_sym_LBRACK];
     AGroup 15653 1 [anon_sym_POUND]; AGroup 15667 1 [sym_kSpecialize]; AGroup 15671 1 [sym_kIf];
     AGroup 15673 1 [sym_kInherited]; AGroup 15745 1 [anon_sym_LPAREN];
     AGroup 17076 1 [sym_kString]; SGroup 4095 1 [aux_sym_exprArgs_repeat1];
     SGroup 15363 1 [sym_exprArgs]; AGroup 3 2 syms_5; AGroup 15651 2 syms_6;
     AGroup 15655 2 syms_7; AGroup 15657 2 syms_8; AGroup 15659 2 syms_9; AGroup 15661 2 syms_10;
     AGroup 15669 2 syms_11; SGroup 8129 2 syms_12; SGroup 7100 3 syms_13; SGroup 8456 4 syms_14;
     AGroup 15663 5 syms_15; SGroup 7786 14 syms_17]);
   (122426, 22, [AGroup 5 1 [sym_ppDirective]; AGroup 15011 1 [anon_sym_LBRACK];
     AGroup 15013 1 [anon_sym_LPAREN]; AGroup 15017 1 [anon_sym_POUND];
     AGroup 15029 1 [sym_kSpecialize]; AGroup 15035 1 [sym_kIf]; AGroup 15037 1 [sym_kInherited];
     AGroup 15039 1 [sym_kString]; SGroup 3809 1 [aux_sym_caseLabel_repeat1];
     SGroup 13471 1 [sym_range]; AGroup 3 2 syms_5; AGroup 15015 2 syms_6; AGroup 15019 2 syms_7;
     AGroup 15021 2 syms_8; AGroup 15023 2 syms_9; AGroup 15025 2 syms_10;
     AGroup 15033 2 syms_11; SGroup 8466 2 syms_12; SGroup 7201 3 syms_13; SGroup 9489 4 syms_14;
     AGroup 15027 5 syms_15; SGroup 7990 14 syms_17]);
   (122523, 21, [AGroup 5 1 [sym_ppDirective]; AGroup 15761 1 [anon_sym_LBRACK];
     AGroup 15763 1 [anon_sym_LPAREN]; AGroup 15767 1 [anon_sym_POUND];
     AGroup 15781 1 [sym_kSpecialize]; AGroup 15785 1 [sym_kIf]; AGroup 15787 1 [sym_kInherited];
     AGroup 17864 1 [sym_kString]; SGroup 4174 1 [aux_sym_with_repeat1]; AGroup 3 2 syms_5;
     AGroup 15765 2 syms_6; AGroup 15769 2 syms_7; AGroup 15771 2 syms_8; AGroup 15773 2 syms_9;
     AGroup 15775 2 syms_10; AGroup 15783 2 syms_11; SGroup 9180 2 syms_12;
     SGroup 7467 3 syms_13; SGroup 9664 4 syms_14; AGroup 15777 5 syms_15; SGroup 8804 14 syms_17]);
   (122617, 5, [AGroup 5 1 [sym_ppDirective]; AGroup 3 2 syms_5; AGroup 15473 4 syms_25;
     AGroup 15403 18 syms_36; AGroup 15471 26 syms_134]);
   (122679, 5, [AGroup 5 1 [sym_ppDirective]; AGroup 3 2 syms_5; AGroup 15504 4 syms_25;
     AGroup 15403 18 syms_36; AGroup 15502 26 syms_134]);
   (122741, 5, [AGroup 5 1 [sym_ppDirective]; AGroup 3 2 syms_5; AGroup 15484 4 syms_25;
     AGroup 15403 18 syms_36; AGroup 15482 26 syms_134]);
   (122803, 5, [AGroup 5 1 [sym_ppDirective]; AGroup 3 2 syms_5; AGroup 15492 4 syms_25;
     AGroup 15403 18 syms_36; AGroup 15490 26 syms_134]);
   (122865, 5, [AGroup 5 1 [sym_ppDirective]; AGroup 3 2 syms_5; AGroup 15401 4 syms_25;
     AGroup 15403 18 syms_36; AGroup 15399 26 syms_134]);
   (122927, 5, [AGroup 5 1 [sym_ppDirective]; AGroup 3 2 syms_5; AGroup 15439 4 syms_25;
     AGroup 15403 18 syms_36; AGroup 15437 26 syms_134]);
   (122989, 5, [AGroup 5 1 [sym_ppDirective]; AGroup 3 2 syms_5; AGroup 15488 4 syms_25;
     AGroup 15403 18 syms_36; AGroup 15486 26 syms_134]);
   (123051, 5, [AGroup 5 1 [sym_ppDirective]; AGroup 3 2 syms_5; AGroup 15496 4 syms_25;
     AGroup 15403 18 syms_36; AGroup 15494 26 syms_134]);
   (123113, 4, [AGroup 5 1 [sym_ppDirective]; AGroup 3 2 syms_5; AGroup 15295 4 syms_25;
     AGroup 15293 44 syms_135]);
   (123173, 5, [AGroup 5 1 [sym_ppDirective]; AGroup 3 2 syms_5; AGroup 15473 4 syms_25;
     AGroup 15403 18 syms_36; AGroup 15471 26 syms_136]);
   (123235, 4, [AGroup 5 1 [sym_ppDirective]; AGroup 3 2 syms_5; AGroup 15355 4 syms_25;
     AGroup 15353 44 syms_135]);
   (123295, 5, [AGroup 5 1 [sym_ppDirective]; AGroup 3 2 syms_5; AGroup 15504 4 syms_25;
     AGroup 15403 18 syms_36; AGroup 15502 26 syms_136]);
   (123357, 5, [AGroup 5 1 [sym_ppDirective]; AGroup 3 2 syms_5; AGroup 15484 4 syms_25;
     AGroup 15403 18 syms_36; AGroup 15482 26 syms_136]);
   (123419, 5, [AGroup 5 1 [sym_ppDirective]; AGroup 3 2 syms_5; AGroup 15492 4 syms_25;
     AGroup 15403 18 syms_36; AGroup 15490 26 syms_136]);
   (123481, 5, [AGroup 5 1 [sym_ppDirective]; AGroup 3 2 syms_5; AGroup 15401 4 syms_25;
     AGroup 15403 18 syms_36; AGroup 15399 26 syms_136]);
   (123543, 5, [AGroup 5 1 [sym_ppDirective]; AGroup 3 2 syms_5; AGroup 15439 4 syms_25;
     AGroup 15403 18 syms_36; AGroup 15437 26 syms_136]);
   (123605, 5, [AGroup 5 1 [sym_ppDirective]; AGroup 3 2 syms_5; AGroup 15488 4 syms_25;
     AGroup 15403 18 syms_36; AGroup 15486 26 syms_136]);
   (123667, 5, [AGroup 5 1 [sym_ppDirective]; AGroup 3 2 syms_5; AGroup 15496 4 syms_25;
     AGroup 15403 18 syms_36; AGroup 15494 26 syms_136]);
   (123729, 32, [AGroup 5 1 [sym_ppDirective]; AGroup 13351 1 [aux_sym_ppUsesBlock_token1];
     AGroup 13365 1 [sym_identifier]; AGroup 13367 1 [sym_kGeneric];
     AGroup 13369 1 [sym_kOperator]; AGroup 13373 1 [sym_kStrict]; AGroup 13377 1 [sym_kCase];
     AGroup 13379 1 [sym_kClass]; AGroup 13391 1 [sym_kProperty]; AGroup 13395 1 [sym_kType];
     AGroup 17792 1 [anon_sym_LBRACK]; AGroup 17866 1 [anon_sym_SEMI]; AGroup 17868 1 [sym_kEnd];
     SGroup 2 1 [sym__ppIf]; SGroup 5331 1 [sym_guid]; SGroup 6354 1 [sym__visibility];
     SGroup 9779 1 [sym_ppBlock]; SGroup 9835 1 [sym__declOperator];
     SGroup 10247 1 [sym__declProc]; SGroup 10617 1 [sym_rttiAttributes];
     SGroup 10730 1 [aux_sym_rttiAttributes_repeat2];
     SGroup 13987 1 [aux_sym_genericArg_repeat1]; SGroup 14434 1 [sym_declVariant];
     SGroup 14704 1 [sym__declClass]; AGroup 3 2 syms_5; AGroup 13381 2 syms_65;
     AGroup 13393 2 syms_66; SGroup 5685 2 syms_68; SGroup 10490 3 syms_69;
     AGroup 13383 4 syms_3; AGroup 13371 6 syms_70; SGroup 6150 6 syms_71])
  ].

(** States 4059 to 4158. *)
Definition small_runs_4059 : list small_run :=
  [
   (123845, 32, [AGroup 5 1 [sym_ppDirective]; AGroup 13347 1 [anon_sym_LBRACK];
     AGroup 13351 1 [aux_sym_ppUsesBlock_token1]; AGroup 13365 1 [sym_identifier];
     AGroup 13367 1 [sym_kGeneric]; AGroup 13369 1 [sym_kOperator]; AGroup 13373 1 [sym_kStrict];
     AGroup 13377 1 [sym_kCase]; AGroup 13379 1 [sym_kClass]; AGroup 13391 1 [sym_kProperty];
     AGroup 13395 1 [sym_kType]; AGroup 16916 1 [anon_sym_SEMI];
     AGroup 16918 1 [anon_sym_LPAREN]; AGroup 16924 1 [sym_kEnd]; SGroup 2 1 [sym__ppIf];
     SGroup 6354 1 [sym__visibility]; SGroup 9779 1 [sym_ppBlock];
     SGroup 9835 1 [sym__declOperator]; SGroup 10247 1 [sym__declProc];
     SGroup 10617 1 [sym_rttiAttributes]; SGroup 10730 1 [aux_sym_rttiAttributes_repeat2];
     SGroup 13987 1 [aux_sym_genericArg_repeat1]; SGroup 14434 1 [sym_declVariant];
     SGroup 15590 1 [sym__declClass]; AGroup 3 2 syms_5; AGroup 13381 2 syms_65;
     AGroup 13393 2 syms_66; SGroup 5685 2 syms_68; SGroup 10490 3 syms_69;
     AGroup 13383 4 syms_3; AGroup 13371 6 syms_70; SGroup 6150 6 syms_71]);
   (123961, 21, [AGroup 5 1 [sym_ppDirective]; AGroup 17870 1 [anon_sym_LBRACK];
     AGroup 17873 1 [anon_sym_LPAREN]; AGroup 17879 1 [anon_sym_POUND];
     AGroup 17897 1 [sym_kSpecialize]; AGroup 17903 1 [sym_kIf]; AGroup 17906 1 [sym_kInherited];
     AGroup 17909 1 [sym_kString]; SGroup 4060 1 [aux_sym_rttiAttributes_repeat1];
     AGroup 3 2 syms_5; AGroup 17876 2 syms_6; AGroup 17882 2 syms_7; AGroup 17885 2 syms_8;
     AGroup 17888 2 syms_9; AGroup 17891 2 syms_10; AGroup 17900 2 syms_11;
     SGroup 8129 2 syms_12; SGroup 7100 3 syms_13; SGroup 10347 4 syms_14;
     AGroup 17894 5 syms_15; SGroup 9049 14 syms_17]);
   (124055, 21, [AGroup 5 1 [sym_ppDirective]; AGroup 15647 1 [anon_sym_LBRACK];
     AGroup 15653 1 [anon_sym_POUND]; AGroup 15667 1 [sym_kSpecialize];
     AGroup 15673 1 [sym_kInherited]; AGroup 15675 1 [sym_kString];
     AGroup 15745 1 [anon_sym_LPAREN]; AGroup 15755 1 [sym_kIf];
     SGroup 4060 1 [aux_sym_rttiAttributes_repeat1]; AGroup 3 2 syms_5; AGroup 15651 2 syms_6;
     AGroup 15655 2 syms_7; AGroup 15657 2 syms_8; AGroup 15669 2 syms_11; AGroup 15747 2 syms_9;
     AGroup 15749 2 syms_10; SGroup 8129 2 syms_12; SGroup 7100 3 syms_13;
     SGroup 10347 4 syms_14; AGroup 17912 5 syms_15; SGroup 8616 14 syms_17]);
   (124149, 21, [AGroup 5 1 [sym_ppDirective]; AGroup 15647 1 [anon_sym_LBRACK];
     AGroup 15653 1 [anon_sym_POUND]; AGroup 15667 1 [sym_kSpecialize];
     AGroup 15673 1 [sym_kInherited]; AGroup 15675 1 [sym_kString];
     AGroup 15745 1 [anon_sym_LPAREN]; AGroup 15755 1 [sym_kIf];
     SGroup 4060 1 [aux_sym_rttiAttributes_repeat1]; AGroup 3 2 syms_5; AGroup 15651 2 syms_6;
     AGroup 15655 2 syms_7; AGroup 15657 2 syms_8; AGroup 15669 2 syms_11; AGroup 15747 2 syms_9;
     AGroup 15749 2 syms_10; SGroup 8129 2 syms_12; SGroup 7100 3 syms_13;
     SGroup 10347 4 syms_14; AGroup 17914 5 syms_15; SGroup 8658 14 syms_17]);
   (124243, 4, [AGroup 5 1 [sym_ppDirective]; AGroup 3 2 syms_5; AGroup 15295 4 syms_25;
     AGroup 15293 44 syms_137]);
   (124303, 4, [AGroup 5 1 [sym_ppDirective]; AGroup 3 2 syms_5; AGroup 15355 4 syms_25;
     AGroup 15353 44 syms_137]);
   (124363, 21, [AGroup 5 1 [sym_ppDirective]; AGroup 15761 1 [anon_sym_LBRACK];
     AGroup 15763 1 [anon_sym_LPAREN]; AGroup 15767 1 [anon_sym_POUND];
     AGroup 15781 1 [sym_kSpecialize]; AGroup 15785 1 [sym_kIf]; AGroup 15787 1 [sym_kInherited];
     AGroup 17864 1 [sym_kString]; SGroup 4102 1 [aux_sym_with_repeat1]; AGroup 3 2 syms_5;
     AGroup 15765 2 syms_6; AGroup 15769 2 syms_7; AGroup 15771 2 syms_8; AGroup 15773 2 syms_9;
     AGroup 15775 2 syms_10; AGroup 15783 2 syms_11; SGroup 9180 2 syms_12;
     SGroup 7467 3 syms_13; SGroup 9726 4 syms_14; AGroup 15777 5 syms_15; SGroup 8804 14 syms_17]);
   (124457, 5, [AGroup 5 1 [sym_ppDirective]; AGroup 3 2 syms_5; AGroup 15496 4 syms_25;
     AGroup 15403 18 syms_36; AGroup 15494 26 syms_138]);
   (124519, 21, [AGroup 5 1 [sym_ppDirective]; AGroup 16599 1 [anon_sym_LBRACK];
     AGroup 16601 1 [anon_sym_LPAREN]; AGroup 16605 1 [anon_sym_POUND];
     AGroup 16619 1 [sym_kSpecialize]; AGroup 16623 1 [sym_kIf]; AGroup 16625 1 [sym_kInherited];
     AGroup 17834 1 [anon_sym_SEMI]; AGroup 17916 1 [sym_kString]; AGroup 3 2 syms_5;
     AGroup 16603 2 syms_6; AGroup 16607 2 syms_7; AGroup 16609 2 syms_8; AGroup 16611 2 syms_9;
     AGroup 16613 2 syms_10; AGroup 16621 2 syms_11; SGroup 9368 2 syms_12;
     SGroup 7477 3 syms_13; SGroup 9721 4 syms_14; AGroup 16615 5 syms_15; SGroup 8680 14 syms_17]);
   (124613, 21, [AGroup 5 1 [sym_ppDirective]; AGroup 15677 1 [anon_sym_LBRACK];
     AGroup 15679 1 [anon_sym_LPAREN]; AGroup 15683 1 [anon_sym_POUND];
     AGroup 15697 1 [sym_kSpecialize]; AGroup 15701 1 [sym_kIf]; AGroup 15703 1 [sym_kInherited];
     AGroup 17206 1 [sym_kString]; AGroup 17918 1 [sym_kName]; AGroup 3 2 syms_5;
     AGroup 15681 2 syms_6; AGroup 15685 2 syms_7; AGroup 15687 2 syms_8; AGroup 15689 2 syms_9;
     AGroup 15691 2 syms_10; AGroup 15699 2 syms_11; SGroup 8792 2 syms_12;
     SGroup 7321 3 syms_13; SGroup 9402 4 syms_14; AGroup 15693 5 syms_15; SGroup 8443 14 syms_17]);
   (124707, 21, [AGroup 5 1 [sym_ppDirective]; AGroup 14983 1 [anon_sym_LBRACK];
     AGroup 14985 1 [anon_sym_LPAREN]; AGroup 14989 1 [anon_sym_POUND];
     AGroup 15001 1 [sym_kSpecialize]; AGroup 15005 1 [sym_kIf]; AGroup 15007 1 [sym_kInherited];
     AGroup 15009 1 [sym_kString]; SGroup 4181 1 [aux_sym_declProp_repeat1]; AGroup 3 2 syms_5;
     AGroup 14987 2 syms_6; AGroup 14991 2 syms_7; AGroup 14993 2 syms_8; AGroup 14995 2 syms_9;
     AGroup 14997 2 syms_10; AGroup 15003 2 syms_11; SGroup 7132 2 syms_12;
     SGroup 6248 3 syms_13; SGroup 7435 4 syms_14; AGroup 14999 5 syms_15; SGroup 7054 14 syms_17]);
   (124801, 21, [AGroup 5 1 [sym_ppDirective]; AGroup 16599 1 [anon_sym_LBRACK];
     AGroup 16601 1 [anon_sym_LPAREN]; AGroup 16605 1 [anon_sym_POUND];
     AGroup 16619 1 [sym_kSpecialize]; AGroup 16623 1 [sym_kIf]; AGroup 16625 1 [sym_kInherited];
     AGroup 17798 1 [anon_sym_SEMI]; AGroup 17916 1 [sym_kString]; AGroup 3 2 syms_5;
     AGroup 16603 2 syms_6; AGroup 16607 2 syms_7; AGroup 16609 2 syms_8; AGroup 16611 2 syms_9;
     AGroup 16613 2 syms_10; AGroup 16621 2 syms_11; SGroup 9368 2 syms_12;
     SGroup 7477 3 syms_13; SGroup 9777 4 syms_14; AGroup 16615 5 syms_15; SGroup 8680 14 syms_17]);
   (124895, 21, [AGroup 5 1 [sym_ppDirective]; AGroup 16599 1 [anon_sym_LBRACK];
     AGroup 16601 1 [anon_sym_LPAREN]; AGroup 16605 1 [anon_sym_POUND];
     AGroup 16619 1 [sym_kSpecialize]; AGroup 16623 1 [sym_kIf]; AGroup 16625 1 [sym_kInherited];
     AGroup 17848 1 [anon_sym_SEMI]; AGroup 17916 1 [sym_kString]; AGroup 3 2 syms_5;
     AGroup 16603 2 syms_6; AGroup 16607 2 syms_7; AGroup 16609 2 syms_8; AGroup 16611 2 syms_9;
     AGroup 16613 2 syms_10; AGroup 16621 2 syms_11; SGroup 9368 2 syms_12;
     SGroup 7477 3 syms_13; SGroup 9800 4 syms_14; AGroup 16615 5 syms_15; SGroup 8680 14 syms_17]);
   (124989, 21, [AGroup 5 1 [sym_ppDirective]; AGroup 16599 1 [anon_sym_LBRACK];
     AGroup 16601 1 [anon_sym_LPAREN]; AGroup 16605 1 [anon_sym_POUND];
     AGroup 16619 1 [sym_kSpecialize]; AGroup 16623 1 [sym_kIf]; AGroup 16625 1 [sym_kInherited];
     AGroup 17708 1 [anon_sym_SEMI]; AGroup 17916 1 [sym_kString]; AGroup 3 2 syms_5;
     AGroup 16603 2 syms_6; AGroup 16607 2 syms_7; AGroup 16609 2 syms_8; AGroup 16611 2 syms_9;
     AGroup 16613 2 syms_10; AGroup 16621 2 syms_11; SGroup 9368 2 syms_12;
     SGroup 7477 3 syms_13; SGroup 9683 4 syms_14; AGroup 16615 5 syms_15; SGroup 8680 14 syms_17]);
   (125083, 5, [AGroup 5 1 [sym_ppDirective]; AGroup 3 2 syms_5; AGroup 15473 4 syms_25;
     AGroup 15403 18 syms_36; AGroup 15471 26 syms_138]);
   (125145, 21, [AGroup 5 1 [sym_ppDirective]; AGroup 16599 1 [anon_sym_LBRACK];
     AGroup 16601 1 [anon_sym_LPAREN]; AGroup 16605 1 [anon_sym_POUND];
     AGroup 16619 1 [sym_kSpecialize]; AGroup 16623 1 [sym_kIf]; AGroup 16625 1 [sym_kInherited];
     AGroup 17010 1 [anon_sym_SEMI]; AGroup 17916 1 [sym_kString]; AGroup 3 2 syms_5;
     AGroup 16603 2 syms_6; AGroup 16607 2 syms_7; AGroup 16609 2 syms_8; AGroup 16611 2 syms_9;
     AGroup 16613 2 syms_10; AGroup 16621 2 syms_11; SGroup 9368 2 syms_12;
     SGroup 7477 3 syms_13; SGroup 9700 4 syms_14; AGroup 16615 5 syms_15; SGroup 8680 14 syms_17]);
   (125239, 21, [AGroup 5 1 [sym_ppDirective]; AGroup 16599 1 [anon_sym_LBRACK];
     AGroup 16601 1 [anon_sym_LPAREN]; AGroup 16605 1 [anon_sym_POUND];
     AGroup 16619 1 [sym_kSpecialize]; AGroup 16623 1 [sym_kIf]; AGroup 16625 1 [sym_kInherited];
     AGroup 17744 1 [anon_sym_SEMI]; AGroup 17916 1 [sym_kString]; AGroup 3 2 syms_5;
     AGroup 16603 2 syms_6; AGroup 16607 2 syms_7; AGroup 16609 2 syms_8; AGroup 16611 2 syms_9;
     AGroup 16613 2 syms_10; AGroup 16621 2 syms_11; SGroup 9368 2 syms_12;
     SGroup 7477 3 syms_13; SGroup 9732 4 syms_14; AGroup 16615 5 syms_15; SGroup 8680 14 syms_17]);
   (125333, 21, [AGroup 5 1 [sym_ppDirective]; AGroup 16599 1 [anon_sym_LBRACK];
     AGroup 16601 1 [anon_sym_LPAREN]; AGroup 16605 1 [anon_sym_POUND];
     AGroup 16619 1 [sym_kSpecialize]; AGroup 16623 1 [sym_kIf]; AGroup 16625 1 [sym_kInherited];
     AGroup 17776 1 [anon_sym_SEMI]; AGroup 17916 1 [sym_kString]; AGroup 3 2 syms_5;
     AGroup 16603 2 syms_6; AGroup 16607 2 syms_7; AGroup 16609 2 syms_8; AGroup 16611 2 syms_9;
     AGroup 16613 2 syms_10; AGroup 16621 2 syms_11; SGroup 9368 2 syms_12;
     SGroup 7477 3 syms_13; SGroup 9760 4 syms_14; AGroup 16615 5 syms_15; SGroup 8680 14 syms_17]);
   (125427, 21, [AGroup 5 1 [sym_ppDirective]; AGroup 15647 1 [anon_sym_LBRACK];
     AGroup 15653 1 [anon_sym_POUND]; AGroup 15667 1 [sym_kSpecialize];
     AGroup 15673 1 [sym_kInherited]; AGroup 15675 1 [sym_kString];
     AGroup 15745 1 [anon_sym_LPAREN]; AGroup 15755 1 [sym_kIf]; AGroup 17920 1 [sym_kName];
     AGroup 3 2 syms_5; AGroup 15651 2 syms_6; AGroup 15655 2 syms_7; AGroup 15657 2 syms_8;
     AGroup 15669 2 syms_11; AGroup 15747 2 syms_9; AGroup 15749 2 syms_10;
     SGroup 8129 2 syms_12; SGroup 7100 3 syms_13; SGroup 9773 4 syms_14; AGroup 15751 5 syms_15;
     SGroup 8464 14 syms_17]);
   (125521, 3, [AGroup 5 1 [sym_ppDirective]; AGroup 3 2 syms_5; AGroup 17922 48 syms_139]);
   (125579, 21, [AGroup 5 1 [sym_ppDirective]; AGroup 15761 1 [anon_sym_LBRACK];
     AGroup 15763 1 [anon_sym_LPAREN]; AGroup 15767 1 [anon_sym_POUND];
     AGroup 15781 1 [sym_kSpecialize]; AGroup 15785 1 [sym_kIf]; AGroup 15787 1 [sym_kInherited];
     AGroup 17864 1 [sym_kString]; SGroup 4080 1 [aux_sym_with_repeat1]; AGroup 3 2 syms_5;
     AGroup 15765 2 syms_6; AGroup 15769 2 syms_7; AGroup 15771 2 syms_8; AGroup 15773 2 syms_9;
     AGroup 15775 2 syms_10; AGroup 15783 2 syms_11; SGroup 9180 2 syms_12;
     SGroup 7467 3 syms_13; SGroup 9696 4 syms_14; AGroup 15777 5 syms_15; SGroup 8804 14 syms_17]);
   (125673, 21, [AGroup 5 1 [sym_ppDirective]; AGroup 15761 1 [anon_sym_LBRACK];
     AGroup 15763 1 [anon_sym_LPAREN]; AGroup 15767 1 [anon_sym_POUND];
     AGroup 15781 1 [sym_kSpecialize]; AGroup 15785 1 [sym_kIf]; AGroup 15787 1 [sym_kInherited];
     AGroup 17864 1 [sym_kString]; SGroup 4102 1 [aux_sym_with_repeat1]; AGroup 3 2 syms_5;
     AGroup 15765 2 syms_6; AGroup 15769 2 syms_7; AGroup 15771 2 syms_8; AGroup 15773 2 syms_9;
     AGroup 15775 2 syms_10; AGroup 15783 2 syms_11; SGroup 9180 2 syms_12;
     SGroup 7467 3 syms_13; SGroup 9770 4 syms_14; AGroup 15777 5 syms_15; SGroup 8804 14 syms_17]);
   (125767, 5, [AGroup 5 1 [sym_ppDirective]; AGroup 3 2 syms_5; AGroup 15504 4 syms_25;
     AGroup 15403 18 syms_36; AGroup 15502 26 syms_138]);
   (125829, 5, [AGroup 5 1 [sym_ppDirective]; AGroup 3 2 syms_5; AGroup 15484 4 syms_25;
     AGroup 15403 18 syms_36; AGroup 15482 26 syms_138]);
   (125891, 32, [AGroup 5 1 [sym_ppDirective]; AGroup 13351 1 [aux_sym_ppUsesBlock_token1];
     AGroup 13365 1 [sym_identifier]; AGroup 13367 1 [sym_kGeneric];
     AGroup 13369 1 [sym_kOperator]; AGroup 13373 1 [sym_kStrict]; AGroup 13377 1 [sym_kCase];
     AGroup 13379 1 [sym_kClass]; AGroup 13391 1 [sym_kProperty]; AGroup 13395 1 [sym_kType];
     AGroup 17792 1 [anon_sym_LBRACK]; AGroup 17924 1 [anon_sym_SEMI]; AGroup 17926 1 [sym_kEnd];
     SGroup 2 1 [sym__ppIf]; SGroup 4884 1 [sym_guid]; SGroup 6354 1 [sym__visibility];
     SGroup 9779 1 [sym_ppBlock]; SGroup 9835 1 [sym__declOperator];
     SGroup 10247 1 [sym__declProc]; SGroup 10617 1 [sym_rttiAttributes];
     SGroup 10730 1 [aux_sym_rttiAttributes_repeat2];
     SGroup 13987 1 [aux_sym_genericArg_repeat1]; SGroup 14434 1 [sym_declVariant];
     SGroup 15196 1 [sym__declClass]; AGroup 3 2 syms_5; AGroup 13381 2 syms_65;
     AGroup 13393 2 syms_66; SGroup 5685 2 syms_68; SGroup 10490 3 syms_69;
     AGroup 13383 4 syms_3; AGroup 13371 6 syms_70; SGroup 6150 6 syms_71]);
   (126007, 32, [AGroup 5 1 [sym_ppDirective]; AGroup 13351 1 [aux_sym_ppUsesBlock_token1];
     AGroup 13365 1 [sym_identifier]; AGroup 13367 1 [sym_kGeneric];
     AGroup 13369 1 [sym_kOperator]; AGroup 13373 1 [sym_kStrict]; AGroup 13377 1 [sym_kCase];
     AGroup 13379 1 [sym_kClass]; AGroup 13391 1 [sym_kProperty]; AGroup 13395 1 [sym_kType];
     AGroup 17792 1 [anon_sym_LBRACK]; AGroup 17928 1 [anon_sym_SEMI]; AGroup 17930 1 [sym_kEnd];
     SGroup 2 1 [sym__ppIf]; SGroup 4891 1 [sym_guid]; SGroup 6354 1 [sym__visibility];
     SGroup 9779 1 [sym_ppBlock]; SGroup 9835 1 [sym__declOperator];
     SGroup 10247 1 [sym__declProc]; SGroup 10617 1 [sym_rttiAttributes];
     SGroup 10730 1 [aux_sym_rttiAttributes_repeat2];
     SGroup 13987 1 [aux_sym_genericArg_repeat1]; SGroup 14434 1 [sym_declVariant];
     SGroup 15241 1 [sym__declClass]; AGroup 3 2 syms_5; AGroup 13381 2 syms_65;
     AGroup 13393 2 syms_66; SGroup 5685 2 syms_68; SGroup 10490 3 syms_69;
     AGroup 13383 4 syms_3; AGroup 13371 6 syms_70; SGroup 6150 6 syms_71]);
   (126123, 11, [AGroup 11641 1 [sym_kDispId]; AGroup 11643 1 [sym_kPublic]; AGroup 11645 1 [sym_kMessage];
     AGroup 11647 1 [sym_kDeprecated]; AGroup 11649 1 [sym_kExport]; AGroup 11651 1 [sym_kAlias];
     AGroup 17932 1 [anon_sym_RBRACK]; SGroup 4520 1 [aux_sym__procAttributeNoExt_repeat2];
     SGroup 13320 1 [sym_procAttribute]; AGroup 3 3 syms_1; AGroup 1016 39 syms_33]);
   (126197, 3, [AGroup 5 1 [sym_ppDirective]; AGroup 3 2 syms_5; AGroup 17934 48 syms_139]);
   (126255, 21, [AGroup 5 1 [sym_ppDirective]; AGroup 16599 1 [anon_sym_LBRACK];
     AGroup 16601 1 [anon_sym_LPAREN]; AGroup 16605 1 [anon_sym_POUND];
     AGroup 16619 1 [sym_kSpecialize]; AGroup 16623 1 [sym_kIf]; AGroup 16625 1 [sym_kInherited];
     AGroup 17854 1 [anon_sym_SEMI]; AGroup 17916 1 [sym_kString]; AGroup 3 2 syms_5;
     AGroup 16603 2 syms_6; AGroup 16607 2 syms_7; AGroup 16609 2 syms_8; AGroup 16611 2 syms_9;
     AGroup 16613 2 syms_10; AGroup 16621 2 syms_11; SGroup 9368 2 syms_12;
     SGroup 7477 3 syms_13; SGroup 9663 4 syms_14; AGroup 16615 5 syms_15; SGroup 8680 14 syms_17]);
   (126349, 13, [AGroup 5 1 [sym_ppDirective]; AGroup 13361 1 [sym_kFdiv]; AGroup 13363 1 [sym_kHat];
     AGroup 13375 1 [sym_kAs]; AGroup 13387 1 [sym_kIs]; AGroup 13389 1 [sym_kNot];
     SGroup 5165 1 [sym__exprIsNot]; AGroup 3 2 syms_5; AGroup 13353 2 syms_83;
     AGroup 13357 4 syms_84; AGroup 13355 5 syms_85; AGroup 13359 6 syms_86;
     AGroup 17936 25 syms_140]);
   (126427, 13, [AGroup 5 1 [sym_ppDirective]; AGroup 13361 1 [sym_kFdiv]; AGroup 13363 1 [sym_kHat];
     AGroup 13375 1 [sym_kAs]; AGroup 13387 1 [sym_kIs]; AGroup 13389 1 [sym_kNot];
     SGroup 5165 1 [sym__exprIsNot]; AGroup 3 2 syms_5; AGroup 13353 2 syms_83;
     AGroup 13357 4 syms_84; AGroup 13355 5 syms_85; AGroup 13359 6 syms_86;
     AGroup 17938 25 syms_140]);
   (126505, 5, [AGroup 5 1 [sym_ppDirective]; AGroup 3 2 syms_5; AGroup 15492 4 syms_25;
     AGroup 15403 18 syms_36; AGroup 15490 26 syms_138]);
   (126567, 5, [AGroup 5 1 [sym_ppDirective]; AGroup 3 2 syms_5; AGroup 15401 4 syms_25;
     AGroup 15403 18 syms_36; AGroup 15399 26 syms_138]);
   (126629, 3, [AGroup 5 1 [sym_ppDirective]; AGroup 3 2 syms_5; AGroup 10953 48 syms_139]);
   (126687, 3, [AGroup 5 1 [sym_ppDirective]; AGroup 3 2 syms_5; AGroup 6280 48 syms_139]);
   (126745, 4, [AGroup 17940 1 [anon_sym_LBRACK]; SGroup 4097 1 [aux_sym_rttiAttributes_repeat2];
     AGroup 3 3 syms_1; AGroup 15477 46 syms_141]);
   (126805, 21, [AGroup 5 1 [sym_ppDirective]; AGroup 15647 1 [anon_sym_LBRACK];
     AGroup 15653 1 [anon_sym_POUND]; AGroup 15667 1 [sym_kSpecialize]; AGroup 15671 1 [sym_kIf];
     AGroup 15673 1 [sym_kInherited]; AGroup 15745 1 [anon_sym_LPAREN];
     AGroup 17942 1 [sym_kString]; SGroup 4151 1 [aux_sym_exprArgs_repeat1]; AGroup 3 2 syms_5;
     AGroup 15651 2 syms_6; AGroup 15655 2 syms_7; AGroup 15657 2 syms_8; AGroup 15659 2 syms_9;
     AGroup 15661 2 syms_10; AGroup 15669 2 syms_11; SGroup 8129 2 syms_12;
     SGroup 7100 3 syms_13; SGroup 8569 4 syms_14; AGroup 15663 5 syms_15; SGroup 7786 14 syms_17]);
   (126899, 21, [AGroup 5 1 [sym_ppDirective]; AGroup 15761 1 [anon_sym_LBRACK];
     AGroup 15763 1 [anon_sym_LPAREN]; AGroup 15767 1 [anon_sym_POUND];
     AGroup 15781 1 [sym_kSpecialize]; AGroup 15785 1 [sym_kIf]; AGroup 15787 1 [sym_kInherited];
     AGroup 17864 1 [sym_kString]; SGroup 4065 1 [aux_sym_with_repeat1]; AGroup 3 2 syms_5;
     AGroup 15765 2 syms_6; AGroup 15769 2 syms_7; AGroup 15771 2 syms_8; AGroup 15773 2 syms_9;
     AGroup 15775 2 syms_10; AGroup 15783 2 syms_11; SGroup 9180 2 syms_12;
     SGroup 7467 3 syms_13; SGroup 9660 4 syms_14; AGroup 15777 5 syms_15; SGroup 8804 14 syms_17]);
   (126993, 4, [AGroup 17944 1 [anon_sym_LBRACK]; SGroup 4097 1 [aux_sym_rttiAttributes_repeat2];
     AGroup 3 3 syms_1; AGroup 11318 46 syms_141]);
   (127053, 21, [AGroup 5 1 [sym_ppDirective]; AGroup 15761 1 [anon_sym_LBRACK];
     AGroup 15763 1 [anon_sym_LPAREN]; AGroup 15767 1 [anon_sym_POUND];
     AGroup 15781 1 [sym_kSpecialize]; AGroup 15785 1 [sym_kIf]; AGroup 15787 1 [sym_kInherited];
     AGroup 17864 1 [sym_kString]; SGroup 4100 1 [aux_sym_with_repeat1]; AGroup 3 2 syms_5;
     AGroup 15765 2 syms_6; AGroup 15769 2 syms_7; AGroup 15771 2 syms_8; AGroup 15773 2 syms_9;
     AGroup 15775 2 syms_10; AGroup 15783 2 syms_11; SGroup 9180 2 syms_12;
     SGroup 7467 3 syms_13; SGroup 9656 4 syms_14; AGroup 15777 5 syms_15; SGroup 8804 14 syms_17]);
   (127147, 21, [AGroup 5 1 [sym_ppDirective]; AGroup 15647 1 [anon_sym_LBRACK];
     AGroup 15653 1 [anon_sym_POUND]; AGroup 15667 1 [sym_kSpecialize];
     AGroup 15673 1 [sym_kInherited]; AGroup 15675 1 [sym_kString];
     AGroup 15745 1 [anon_sym_LPAREN]; AGroup 15755 1 [sym_kIf];
     SGroup 4060 1 [aux_sym_rttiAttributes_repeat1]; AGroup 3 2 syms_5; AGroup 15651 2 syms_6;
     AGroup 15655 2 syms_7; AGroup 15657 2 syms_8; AGroup 15669 2 syms_11; AGroup 15747 2 syms_9;
     AGroup 15749 2 syms_10; SGroup 8129 2 syms_12; SGroup 7100 3 syms_13;
     SGroup 10347 4 syms_14; AGroup 17947 5 syms_15; SGroup 8607 14 syms_17]);
   (127241, 21, [AGroup 5 1 [sym_ppDirective]; AGroup 15761 1 [anon_sym_LBRACK];
     AGroup 15763 1 [anon_sym_LPAREN]; AGroup 15767 1 [anon_sym_POUND];
     AGroup 15781 1 [sym_kSpecialize]; AGroup 15785 1 [sym_kIf]; AGroup 15787 1 [sym_kInherited];
     AGroup 17864 1 [sym_kString]; SGroup 4102 1 [aux_sym_with_repeat1]; AGroup 3 2 syms_5;
     AGroup 15765 2 syms_6; AGroup 15769 2 syms_7; AGroup 15771 2 syms_8; AGroup 15773 2 syms_9;
     AGroup 15775 2 syms_10; AGroup 15783 2 syms_11; SGroup 9180 2 syms_12;
     SGroup 7467 3 syms_13; SGroup 9793 4 syms_14; AGroup 15777 5 syms_15; SGroup 8804 14 syms_17]);
   (127335, 21, [AGroup 5 1 [sym_ppDirective]; AGroup 14747 1 [sym_kDo]; AGroup 15761 1 [anon_sym_LBRACK];
     AGroup 15763 1 [anon_sym_LPAREN]; AGroup 15767 1 [anon_sym_POUND];
     AGroup 15781 1 [sym_kSpecialize]; AGroup 15787 1 [sym_kInherited]; AGroup 16229 1 [sym_kIf];
     AGroup 17864 1 [sym_kString]; AGroup 3 2 syms_5; AGroup 15765 2 syms_6;
     AGroup 15769 2 syms_7; AGroup 15771 2 syms_8; AGroup 15783 2 syms_11; AGroup 16221 2 syms_9;
     AGroup 16223 2 syms_10; SGroup 9180 2 syms_12; SGroup 7467 3 syms_13;
     SGroup 10021 4 syms_14; AGroup 16225 5 syms_15; SGroup 9076 14 syms_17]);
   (127429, 21, [AGroup 5 1 [sym_ppDirective]; AGroup 17949 1 [anon_sym_LBRACK];
     AGroup 17952 1 [anon_sym_LPAREN]; AGroup 17958 1 [anon_sym_POUND];
     AGroup 17976 1 [sym_kSpecialize]; AGroup 17982 1 [sym_kIf]; AGroup 17985 1 [sym_kInherited];
     AGroup 17988 1 [sym_kString]; SGroup 4102 1 [aux_sym_with_repeat1]; AGroup 3 2 syms_5;
     AGroup 17955 2 syms_6; AGroup 17961 2 syms_7; AGroup 17964 2 syms_8; AGroup 17967 2 syms_9;
     AGroup 17970 2 syms_10; AGroup 17979 2 syms_11; SGroup 8129 2 syms_12;
     SGroup 7100 3 syms_13; SGroup 9878 4 syms_14; AGroup 17973 5 syms_15; SGroup 7786 14 syms_17]);
   (127523, 21, [AGroup 5 1 [sym_ppDirective]; AGroup 15647 1 [anon_sym_LBRACK];
     AGroup 15653 1 [anon_sym_POUND]; AGroup 15667 1 [sym_kSpecialize]; AGroup 15671 1 [sym_kIf];
     AGroup 15673 1 [sym_kInherited]; AGroup 15675 1 [sym_kString];
     AGroup 15745 1 [anon_sym_LPAREN]; AGroup 17991 1 [sym_kName]; AGroup 3 2 syms_5;
     AGroup 15651 2 syms_6; AGroup 15655 2 syms_7; AGroup 15657 2 syms_8; AGroup 15659 2 syms_9;
     AGroup 15661 2 syms_10; AGroup 15669 2 syms_11; SGroup 8129 2 syms_12;
     SGroup 7100 3 syms_13; SGroup 9689 4 syms_14; AGroup 15663 5 syms_15; SGroup 7786 14 syms_17]);
   (127617, 11, [AGroup 11641 1 [sym_kDispId]; AGroup 11643 1 [sym_kPublic]; AGroup 11645 1 [sym_kMessage];
     AGroup 11647 1 [sym_kDeprecated]; AGroup 11649 1 [sym_kExport]; AGroup 11651 1 [sym_kAlias];
     AGroup 17993 1 [anon_sym_RBRACK]; SGroup 5315 1 [aux_sym__procAttributeNoExt_repeat2];
     SGroup 13187 1 [sym_procAttribute]; AGroup 3 3 syms_1; AGroup 1016 39 syms_33]);
   (127691, 21, [AGroup 5 1 [sym_ppDirective]; AGroup 15647 1 [anon_sym_LBRACK];
     AGroup 15653 1 [anon_sym_POUND]; AGroup 15667 1 [sym_kSpecialize];
     AGroup 15673 1 [sym_kInherited]; AGroup 15675 1 [sym_kString];
     AGroup 15745 1 [anon_sym_LPAREN]; AGroup 15755 1 [sym_kIf];
     SGroup 4060 1 [aux_sym_rttiAttributes_repeat1]; AGroup 3 2 syms_5; AGroup 15651 2 syms_6;
     AGroup 15655 2 syms_7; AGroup 15657 2 syms_8; AGroup 15669 2 syms_11; AGroup 15747 2 syms_9;
     AGroup 15749 2 syms_10; SGroup 8129 2 syms_12; SGroup 7100 3 syms_13;
     SGroup 10347 4 syms_14; AGroup 17995 5 syms_15; SGroup 8613 14 syms_17]);
   (127785, 21, [AGroup 5 1 [sym_ppDirective]; AGroup 15761 1 [anon_sym_LBRACK];
     AGroup 15763 1 [anon_sym_LPAREN]; AGroup 15767 1 [anon_sym_POUND];
     AGroup 15781 1 [sym_kSpecialize]; AGroup 15785 1 [sym_kIf]; AGroup 15787 1 [sym_kInherited];
     AGroup 17864 1 [sym_kString]; SGroup 4108 1 [aux_sym_with_repeat1]; AGroup 3 2 syms_5;
     AGroup 15765 2 syms_6; AGroup 15769 2 syms_7; AGroup 15771 2 syms_8; AGroup 15773 2 syms_9;
     AGroup 15775 2 syms_10; AGroup 15783 2 syms_11; SGroup 9180 2 syms_12;
     SGroup 7467 3 syms_13; SGroup 9790 4 syms_14; AGroup 15777 5 syms_15; SGroup 8804 14 syms_17]);
   (127879, 21, [AGroup 5 1 [sym_ppDirective]; AGroup 15647 1 [anon_sym_LBRACK];
     AGroup 15653 1 [anon_sym_POUND]; AGroup 15667 1 [sym_kSpecialize];
     AGroup 15673 1 [sym_kInherited]; AGroup 15675 1 [sym_kString];
     AGroup 15745 1 [anon_sym_LPAREN]; AGroup 15755 1 [sym_kIf];
     SGroup 4060 1 [aux_sym_rttiAttributes_repeat1]; AGroup 3 2 syms_5; AGroup 15651 2 syms_6;
     AGroup 15655 2 syms_7; AGroup 15657 2 syms_8; AGroup 15669 2 syms_11; AGroup 15747 2 syms_9;
     AGroup 15749 2 syms_10; SGroup 8129 2 syms_12; SGroup 7100 3 syms_13;
     SGroup 10347 4 syms_14; AGroup 17997 5 syms_15; SGroup 8623 14 syms_17]);
   (127973, 21, [AGroup 5 1 [sym_ppDirective]; AGroup 15761 1 [anon_sym_LBRACK];
     AGroup 15763 1 [anon_sym_LPAREN]; AGroup 15767 1 [anon_sym_POUND];
     AGroup 15781 1 [sym_kSpecialize]; AGroup 15785 1 [sym_kIf]; AGroup 15787 1 [sym_kInherited];
     AGroup 17864 1 [sym_kString]; SGroup 4102 1 [aux_sym_with_repeat1]; AGroup 3 2 syms_5;
     AGroup 15765 2 syms_6; AGroup 15769 2 syms_7; AGroup 15771 2 syms_8; AGroup 15773 2 syms_9;
     AGroup 15775 2 syms_10; AGroup 15783 2 syms_11; SGroup 9180 2 syms_12;
     SGroup 7467 3 syms_13; SGroup 9687 4 syms_14; AGroup 15777 5 syms_15; SGroup 8804 14 syms_17]);
   (128067, 11, [AGroup 11641 1 [sym_kDispId]; AGroup 11643 1 [sym_kPublic]; AGroup 11645 1 [sym_kMessage];
     AGroup 11647 1 [sym_kDeprecated]; AGroup 11649 1 [sym_kExport]; AGroup 11651 1 [sym_kAlias];
     AGroup 17999 1 [anon_sym_RBRACK]; SGroup 5337 1 [aux_sym__procAttributeNoExt_repeat2];
     SGroup 13606 1 [sym_procAttribute]; AGroup 3 3 syms_1; AGroup 1016 39 syms_33]);
   (128141, 21, [AGroup 5 1 [sym_ppDirective]; AGroup 15647 1 [anon_sym_LBRACK];
     AGroup 15653 1 [anon_sym_POUND]; AGroup 15667 1 [sym_kSpecialize];
     AGroup 15673 1 [sym_kInherited]; AGroup 15675 1 [sym_kString];
     AGroup 15745 1 [anon_sym_LPAREN]; AGroup 15755 1 [sym_kIf];
     SGroup 4060 1 [aux_sym_rttiAttributes_repeat1]; AGroup 3 2 syms_5; AGroup 15651 2 syms_6;
     AGroup 15655 2 syms_7; AGroup 15657 2 syms_8; AGroup 15669 2 syms_11; AGroup 15747 2 syms_9;
     AGroup 15749 2 syms_10; SGroup 8129 2 syms_12; SGroup 7100 3 syms_13;
     SGroup 10347 4 syms_14; AGroup 18001 5 syms_15; SGroup 8629 14 syms_17]);
   (128235, 21, [AGroup 5 1 [sym_ppDirective]; AGroup 15761 1 [anon_sym_LBRACK];
     AGroup 15763 1 [anon_sym_LPAREN]; AGroup 15767 1 [anon_sym_POUND];
     AGroup 15781 1 [sym_kSpecialize]; AGroup 15785 1 [sym_kIf]; AGroup 15787 1 [sym_kInherited];
     AGroup 17864 1 [sym_kString]; SGroup 4113 1 [aux_sym_with_repeat1]; AGroup 3 2 syms_5;
     AGroup 15765 2 syms_6; AGroup 15769 2 syms_7; AGroup 15771 2 syms_8; AGroup 15773 2 syms_9;
     AGroup 15775 2 syms_10; AGroup 15783 2 syms_11; SGroup 9180 2 syms_12;
     SGroup 7467 3 syms_13; SGroup 9742 4 syms_14; AGroup 15777 5 syms_15; SGroup 8804 14 syms_17]);
   (128329, 21, [AGroup 5 1 [sym_ppDirective]; AGroup 15647 1 [anon_sym_LBRACK];
     AGroup 15653 1 [anon_sym_POUND]; AGroup 15667 1 [sym_kSpecialize];
     AGroup 15673 1 [sym_kInherited]; AGroup 15675 1 [sym_kString];
     AGroup 15745 1 [anon_sym_LPAREN]; AGroup 15755 1 [sym_kIf];
     SGroup 4060 1 [aux_sym_rttiAttributes_repeat1]; AGroup 3 2 syms_5; AGroup 15651 2 syms_6;
     AGroup 15655 2 syms_7; AGroup 15657 2 syms_8; AGroup 15669 2 syms_11; AGroup 15747 2 syms_9;
     AGroup 15749 2 syms_10; SGroup 8129 2 syms_12; SGroup 7100 3 syms_13;
     SGroup 10347 4 syms_14; AGroup 18003 5 syms_15; SGroup 8632 14 syms_17]);
   (128423, 21, [AGroup 5 1 [sym_ppDirective]; AGroup 15761 1 [anon_sym_LBRACK];
     AGroup 15763 1 [anon_sym_LPAREN]; AGroup 15767 1 [anon_sym_POUND];
     AGroup 15781 1 [sym_kSpecialize]; AGroup 15785 1 [sym_kIf]; AGroup 15787 1 [sym_kInherited];
     AGroup 17864 1 [sym_kString]; SGroup 4102 1 [aux_sym_with_repeat1]; AGroup 3 2 syms_5;
     AGroup 15765 2 syms_6; AGroup 15769 2 syms_7; AGroup 15771 2 syms_8; AGroup 15773 2 syms_9;
     AGroup 15775 2 syms_10; AGroup 15783 2 syms_11; SGroup 9180 2 syms_12;
     SGroup 7467 3 syms_13; SGroup 9813 4 syms_14; AGroup 15777 5 syms_15; SGroup 8804 14 syms_17]);
   (128517, 11, [AGroup 11641 1 [sym_kDispId]; AGroup 11643 1 [sym_kPublic]; AGroup 11645 1 [sym_kMessage];
     AGroup 11647 1 [sym_kDeprecated]; AGroup 11649 1 [sym_kExport]; AGroup 11651 1 [sym_kAlias];
     AGroup 18005 1 [anon_sym_RBRACK]; SGroup 5353 1 [aux_sym__procAttributeNoExt_repeat2];
     SGroup 13909 1 [sym_procAttribute]; AGroup 3 3 syms_1; AGroup 1016 39 syms_33]);
   (128591, 21, [AGroup 5 1 [sym_ppDirective]; AGroup 15647 1 [anon_sym_LBRACK];
     AGroup 15653 1 [anon_sym_POUND]; AGroup 15667 1 [sym_kSpecialize];
     AGroup 15673 1 [sym_kInherited]; AGroup 15675 1 [sym_kString];
     AGroup 15745 1 [anon_sym_LPAREN]; AGroup 15755 1 [sym_kIf];
     SGroup 4060 1 [aux_sym_rttiAttributes_repeat1]; AGroup 3 2 syms_5; AGroup 15651 2 syms_6;
     AGroup 15655 2 syms_7; AGroup 15657 2 syms_8; AGroup 15669 2 syms_11; AGroup 15747 2 syms_9;
     AGroup 15749 2 syms_10; SGroup 8129 2 syms_12; SGroup 7100 3 syms_13;
     SGroup 10347 4 syms_14; AGroup 18007 5 syms_15; SGroup 8638 14 syms_17]);
   (128685, 21, [AGroup 5 1 [sym_ppDirective]; AGroup 15761 1 [anon_sym_LBRACK];
     AGroup 15763 1 [anon_sym_LPAREN]; AGroup 15767 1 [anon_sym_POUND];
     AGroup 15781 1 [sym_kSpecialize]; AGroup 15785 1 [sym_kIf]; AGroup 15787 1 [sym_kInherited];
     AGroup 17864 1 [sym_kString]; SGroup 4118 1 [aux_sym_with_repeat1]; AGroup 3 2 syms_5;
     AGroup 15765 2 syms_6; AGroup 15769 2 syms_7; AGroup 15771 2 syms_8; AGroup 15773 2 syms_9;
     AGroup 15775 2 syms_10; AGroup 15783 2 syms_11; SGroup 9180 2 syms_12;
     SGroup 7467 3 syms_13; SGroup 9632 4 syms_14; AGroup 15777 5 syms_15; SGroup 8804 14 syms_17]);
   (128779, 21, [AGroup 5 1 [sym_ppDirective]; AGroup 15647 1 [anon_sym_LBRACK];
     AGroup 15653 1 [anon_sym_POUND]; AGroup 15667 1 [sym_kSpecialize];
     AGroup 15673 1 [sym_kInherited]; AGroup 15675 1 [sym_kString];
     AGroup 15745 1 [anon_sym_LPAREN]; AGroup 15755 1 [sym_kIf];
     SGroup 4060 1 [aux_sym_rttiAttributes_repeat1]; AGroup 3 2 syms_5; AGroup 15651 2 syms_6;
     AGroup 15655 2 syms_7; AGroup 15657 2 syms_8; AGroup 15669 2 syms_11; AGroup 15747 2 syms_9;
     AGroup 15749 2 syms_10; SGroup 8129 2 syms_12; SGroup 7100 3 syms_13;
     SGroup 10347 4 syms_14; AGroup 18009 5 syms_15; SGroup 8641 14 syms_17]);
   (128873, 21, [AGroup 5 1 [sym_ppDirective]; AGroup 15761 1 [anon_sym_LBRACK];
     AGroup 15763 1 [anon_sym_LPAREN]; AGroup 15767 1 [anon_sym_POUND];
     AGroup 15781 1 [sym_kSpecialize]; AGroup 15785 1 [sym_kIf]; AGroup 15787 1 [sym_kInherited];
     AGroup 17864 1 [sym_kString]; SGroup 4102 1 [aux_sym_with_repeat1]; AGroup 3 2 syms_5;
     AGroup 15765 2 syms_6; AGroup 15769 2 syms_7; AGroup 15771 2 syms_8; AGroup 15773 2 syms_9;
     AGroup 15775 2 syms_10; AGroup 15783 2 syms_11; SGroup 9180 2 syms_12;
     SGroup 7467 3 syms_13; SGroup 9766 4 syms_14; AGroup 15777 5 syms_15; SGroup 8804 14 syms_17]);
   (128967, 11, [AGroup 11641 1 [sym_kDispId]; AGroup 11643 1 [sym_kPublic]; AGroup 11645 1 [sym_kMessage];
     AGroup 11647 1 [sym_kDeprecated]; AGroup 11649 1 [sym_kExport]; AGroup 11651 1 [sym_kAlias];
     AGroup 18011 1 [anon_sym_RBRACK]; SGroup 5366 1 [aux_sym__procAttributeNoExt_repeat2];
     SGroup 13022 1 [sym_procAttribute]; AGroup 3 3 syms_1; AGroup 1016 39 syms_33]);
   (129041, 21, [AGroup 5 1 [sym_ppDirective]; AGroup 15647 1 [anon_sym_LBRACK];
     AGroup 15653 1 [anon_sym_POUND]; AGroup 15667 1 [sym_kSpecialize];
     AGroup 15673 1 [sym_kInherited]; AGroup 15675 1 [sym_kString];
     AGroup 15745 1 [anon_sym_LPAREN]; AGroup 15755 1 [sym_kIf];
     SGroup 4060 1 [aux_sym_rttiAttributes_repeat1]; AGroup 3 2 syms_5; AGroup 15651 2 syms_6;
     AGroup 15655 2 syms_7; AGroup 15657 2 syms_8; AGroup 15669 2 syms_11; AGroup 15747 2 syms_9;
     AGroup 15749 2 syms_10; SGroup 8129 2 syms_12; SGroup 7100 3 syms_13;
     SGroup 10347 4 syms_14; AGroup 18013 5 syms_15; SGroup 8648 14 syms_17]);
   (129135, 32, [AGroup 5 1 [sym_ppDirective]; AGroup 13351 1 [aux_sym_ppUsesBlock_token1];
     AGroup 13365 1 [sym_identifier]; AGroup 13367 1 [sym_kGeneric];
     AGroup 13369 1 [sym_kOperator]; AGroup 13373 1 [sym_kStrict]; AGroup 13377 1 [sym_kCase];
     AGroup 13379 1 [sym_kClass]; AGroup 13391 1 [sym_kProperty]; AGroup 13395 1 [sym_kType];
     AGroup 17792 1 [anon_sym_LBRACK]; AGroup 18015 1 [anon_sym_SEMI]; AGroup 18017 1 [sym_kEnd];
     SGroup 2 1 [sym__ppIf]; SGroup 4941 1 [sym_guid]; SGroup 6354 1 [sym__visibility];
     SGroup 9779 1 [sym_ppBlock]; SGroup 9835 1 [sym__declOperator];
     SGroup 10247 1 [sym__declProc]; SGroup 10617 1 [sym_rttiAttributes];
     SGroup 10730 1 [aux_sym_rttiAttributes_repeat2];
     SGroup 13987 1 [aux_sym_genericArg_repeat1]; SGroup 14333 1 [sym__declClass];
     SGroup 14434 1 [sym_declVariant]; AGroup 3 2 syms_5; AGroup 13381 2 syms_65;
     AGroup 13393 2 syms_66; SGroup 5685 2 syms_68; SGroup 10490 3 syms_69;
     AGroup 13383 4 syms_3; AGroup 13371 6 syms_70; SGroup 6150 6 syms_71]);
   (129251, 32, [AGroup 5 1 [sym_ppDirective]; AGroup 13351 1 [aux_sym_ppUsesBlock_token1];
     AGroup 13365 1 [sym_identifier]; AGroup 13367 1 [sym_kGeneric];
     AGroup 13369 1 [sym_kOperator]; AGroup 13373 1 [sym_kStrict]; AGroup 13377 1 [sym_kCase];
     AGroup 13379 1 [sym_kClass]; AGroup 13391 1 [sym_kProperty]; AGroup 13395 1 [sym_kType];
     AGroup 17792 1 [anon_sym_LBRACK]; AGroup 18019 1 [anon_sym_SEMI]; AGroup 18021 1 [sym_kEnd];
     SGroup 2 1 [sym__ppIf]; SGroup 5067 1 [sym_guid]; SGroup 6354 1 [sym__visibility];
     SGroup 9779 1 [sym_ppBlock]; SGroup 9835 1 [sym__declOperator];
     SGroup 10247 1 [sym__declProc]; SGroup 10617 1 [sym_rttiAttributes];
     SGroup 10730 1 [aux_sym_rttiAttributes_repeat2];
     SGroup 13987 1 [aux_sym_genericArg_repeat1]; SGroup 14393 1 [sym__declClass];
     SGroup 14434 1 [sym_declVariant]; AGroup 3 2 syms_5; AGroup 13381 2 syms_65;
     AGroup 13393 2 syms_66; SGroup 5685 2 syms_68; SGroup 10490 3 syms_69;
     AGroup 13383 4 syms_3; AGroup 13371 6 syms_70; SGroup 6150 6 syms_71]);
   (129367, 21, [AGroup 5 1 [sym_ppDirective]; AGroup 15761 1 [anon_sym_LBRACK];
     AGroup 15763 1 [anon_sym_LPAREN]; AGroup 15767 1 [anon_sym_POUND];
     AGroup 15781 1 [sym_kSpecialize]; AGroup 15785 1 [sym_kIf]; AGroup 15787 1 [sym_kInherited];
     AGroup 17864 1 [sym_kString]; SGroup 4125 1 [aux_sym_with_repeat1]; AGroup 3 2 syms_5;
     AGroup 15765 2 syms_6; AGroup 15769 2 syms_7; AGroup 15771 2 syms_8; AGroup 15773 2 syms_9;
     AGroup 15775 2 syms_10; AGroup 15783 2 syms_11; SGroup 9180 2 syms_12;
     SGroup 7467 3 syms_13; SGroup 9645 4 syms_14; AGroup 15777 5 syms_15; SGroup 8804 14 syms_17]);
   (129461, 21, [AGroup 5 1 [sym_ppDirective]; AGroup 15647 1 [anon_sym_LBRACK];
     AGroup 15653 1 [anon_sym_POUND]; AGroup 15667 1 [sym_kSpecialize];
     AGroup 15673 1 [sym_kInherited]; AGroup 15675 1 [sym_kString];
     AGroup 15745 1 [anon_sym_LPAREN]; AGroup 15755 1 [sym_kIf];
     SGroup 4060 1 [aux_sym_rttiAttributes_repeat1]; AGroup 3 2 syms_5; AGroup 15651 2 syms_6;
     AGroup 15655 2 syms_7; AGroup 15657 2 syms_8; AGroup 15669 2 syms_11; AGroup 15747 2 syms_9;
     AGroup 15749 2 syms_10; SGroup 8129 2 syms_12; SGroup 7100 3 syms_13;
     SGroup 10347 4 syms_14; AGroup 18023 5 syms_15; SGroup 8653 14 syms_17]);
   (129555, 21, [AGroup 5 1 [sym_ppDirective]; AGroup 15761 1 [anon_sym_LBRACK];
     AGroup 15763 1 [anon_sym_LPAREN]; AGroup 15767 1 [anon_sym_POUND];
     AGroup 15781 1 [sym_kSpecialize]; AGroup 15785 1 [sym_kIf]; AGroup 15787 1 [sym_kInherited];
     AGroup 17864 1 [sym_kString]; SGroup 4102 1 [aux_sym_with_repeat1]; AGroup 3 2 syms_5;
     AGroup 15765 2 syms_6; AGroup 15769 2 syms_7; AGroup 15771 2 syms_8; AGroup 15773 2 syms_9;
     AGroup 15775 2 syms_10; AGroup 15783 2 syms_11; SGroup 9180 2 syms_12;
     SGroup 7467 3 syms_13; SGroup 9671 4 syms_14; AGroup 15777 5 syms_15; SGroup 8804 14 syms_17]);
   (129649, 11, [AGroup 11641 1 [sym_kDispId]; AGroup 11643 1 [sym_kPublic]; AGroup 11645 1 [sym_kMessage];
     AGroup 11647 1 [sym_kDeprecated]; AGroup 11649 1 [sym_kExport]; AGroup 11651 1 [sym_kAlias];
     AGroup 18025 1 [anon_sym_RBRACK]; SGroup 5379 1 [aux_sym__procAttributeNoExt_repeat2];
     SGroup 13102 1 [sym_procAttribute]; AGroup 3 3 syms_1; AGroup 1016 39 syms_33]);
   (129723, 21, [AGroup 5 1 [sym_ppDirective]; AGroup 15761 1 [anon_sym_LBRACK];
     AGroup 15763 1 [anon_sym_LPAREN]; AGroup 15767 1 [anon_sym_POUND];
     AGroup 15781 1 [sym_kSpecialize]; AGroup 15785 1 [sym_kIf]; AGroup 15787 1 [sym_kInherited];
     AGroup 17864 1 [sym_kString]; SGroup 4102 1 [aux_sym_with_repeat1]; AGroup 3 2 syms_5;
     AGroup 15765 2 syms_6; AGroup 15769 2 syms_7; AGroup 15771 2 syms_8; AGroup 15773 2 syms_9;
     AGroup 15775 2 syms_10; AGroup 15783 2 syms_11; SGroup 9180 2 syms_12;
     SGroup 7467 3 syms_13; SGroup 9680 4 syms_14; AGroup 15777 5 syms_15; SGroup 8804 14 syms_17]);
   (129817, 21, [AGroup 5 1 [sym_ppDirective]; AGroup 15647 1 [anon_sym_LBRACK];
     AGroup 15653 1 [anon_sym_POUND]; AGroup 15667 1 [sym_kSpecialize];
     AGroup 15673 1 [sym_kInherited]; AGroup 15675 1 [sym_kString];
     AGroup 15745 1 [anon_sym_LPAREN]; AGroup 15755 1 [sym_kIf];
     SGroup 4060 1 [aux_sym_rttiAttributes_repeat1]; AGroup 3 2 syms_5; AGroup 15651 2 syms_6;
     AGroup 15655 2 syms_7; AGroup 15657 2 syms_8; AGroup 15669 2 syms_11; AGroup 15747 2 syms_9;
     AGroup 15749 2 syms_10; SGroup 8129 2 syms_12; SGroup 7100 3 syms_13;
     SGroup 10347 4 syms_14; AGroup 18027 5 syms_15; SGroup 8657 14 syms_17]);
   (129911, 21, [AGroup 5 1 [sym_ppDirective]; AGroup 15761 1 [anon_sym_LBRACK];
     AGroup 15763 1 [anon_sym_LPAREN]; AGroup 15767 1 [anon_sym_POUND];
     AGroup 15781 1 [sym_kSpecialize]; AGroup 15785 1 [sym_kIf]; AGroup 15787 1 [sym_kInherited];
     AGroup 17864 1 [sym_kString]; SGroup 4131 1 [aux_sym_with_repeat1]; AGroup 3 2 syms_5;
     AGroup 15765 2 syms_6; AGroup 15769 2 syms_7; AGroup 15771 2 syms_8; AGroup 15773 2 syms_9;
     AGroup 15775 2 syms_10; AGroup 15783 2 syms_11; SGroup 9180 2 syms_12;
     SGroup 7467 3 syms_13; SGroup 9679 4 syms_14; AGroup 15777 5 syms_15; SGroup 8804 14 syms_17]);
   (130005, 21, [AGroup 5 1 [sym_ppDirective]; AGroup 15647 1 [anon_sym_LBRACK];
     AGroup 15653 1 [anon_sym_POUND]; AGroup 15667 1 [sym_kSpecialize];
     AGroup 15673 1 [sym_kInherited]; AGroup 15675 1 [sym_kString];
     AGroup 15745 1 [anon_sym_LPAREN]; AGroup 15755 1 [sym_kIf];
     SGroup 4060 1 [aux_sym_rttiAttributes_repeat1]; AGroup 3 2 syms_5; AGroup 15651 2 syms_6;
     AGroup 15655 2 syms_7; AGroup 15657 2 syms_8; AGroup 15669 2 syms_11; AGroup 15747 2 syms_9;
     AGroup 15749 2 syms_10; SGroup 8129 2 syms_12; SGroup 7100 3 syms_13;
     SGroup 10347 4 syms_14; AGroup 18029 5 syms_15; SGroup 8660 14 syms_17]);
   (130099, 21, [AGroup 5 1 [sym_ppDirective]; AGroup 15761 1 [anon_sym_LBRACK];
     AGroup 15763 1 [anon_sym_LPAREN]; AGroup 15767 1 [anon_sym_POUND];
     AGroup 15781 1 [sym_kSpecialize]; AGroup 15785 1 [sym_kIf]; AGroup 15787 1 [sym_kInherited];
     AGroup 17864 1 [sym_kString]; SGroup 4102 1 [aux_sym_with_repeat1]; AGroup 3 2 syms_5;
     AGroup 15765 2 syms_6; AGroup 15769 2 syms_7; AGroup 15771 2 syms_8; AGroup 15773 2 syms_9;
     AGroup 15775 2 syms_10; AGroup 15783 2 syms_11; SGroup 9180 2 syms_12;
     SGroup 7467 3 syms_13; SGroup 9733 4 syms_14; AGroup 15777 5 syms_15; SGroup 8804 14 syms_17]);
   (130193, 11, [AGroup 11641 1 [sym_kDispId]; AGroup 11643 1 [sym_kPublic]; AGroup 11645 1 [sym_kMessage];
     AGroup 11647 1 [sym_kDeprecated]; AGroup 11649 1 [sym_kExport]; AGroup 11651 1 [sym_kAlias];
     AGroup 18031 1 [anon_sym_RBRACK]; SGroup 5390 1 [aux_sym__procAttributeNoExt_repeat2];
     SGroup 13177 1 [sym_procAttribute]; AGroup 3 3 syms_1; AGroup 1016 39 syms_33]);
   (130267, 21, [AGroup 5 1 [sym_ppDirective]; AGroup 14765 1 [sym_kDo]; AGroup 15761 1 [anon_sym_LBRACK];
     AGroup 15763 1 [anon_sym_LPAREN]; AGroup 15767 1 [anon_sym_POUND];
     AGroup 15781 1 [sym_kSpecialize]; AGroup 15787 1 [sym_kInherited]; AGroup 16229 1 [sym_kIf];
     AGroup 17864 1 [sym_kString]; AGroup 3 2 syms_5; AGroup 15765 2 syms_6;
     AGroup 15769 2 syms_7; AGroup 15771 2 syms_8; AGroup 15783 2 syms_11; AGroup 16221 2 syms_9;
     AGroup 16223 2 syms_10; SGroup 9180 2 syms_12; SGroup 7467 3 syms_13;
     SGroup 10164 4 syms_14; AGroup 16225 5 syms_15; SGroup 9076 14 syms_17]);
   (130361, 21, [AGroup 5 1 [sym_ppDirective]; AGroup 15647 1 [anon_sym_LBRACK];
     AGroup 15653 1 [anon_sym_POUND]; AGroup 15667 1 [sym_kSpecialize];
     AGroup 15673 1 [sym_kInherited]; AGroup 15675 1 [sym_kString];
     AGroup 15745 1 [anon_sym_LPAREN]; AGroup 15755 1 [sym_kIf];
     SGroup 4060 1 [aux_sym_rttiAttributes_repeat1]; AGroup 3 2 syms_5; AGroup 15651 2 syms_6;
     AGroup 15655 2 syms_7; AGroup 15657 2 syms_8; AGroup 15669 2 syms_11; AGroup 15747 2 syms_9;
     AGroup 15749 2 syms_10; SGroup 8129 2 syms_12; SGroup 7100 3 syms_13;
     SGroup 10347 4 syms_14; AGroup 18033 5 syms_15; SGroup 8663 14 syms_17]);
   (130455, 32, [AGroup 5 1 [sym_ppDirective]; AGroup 13351 1 [aux_sym_ppUsesBlock_token1];
     AGroup 13365 1 [sym_identifier]; AGroup 13367 1 [sym_kGeneric];
     AGroup 13369 1 [sym_kOperator]; AGroup 13373 1 [sym_kStrict]; AGroup 13377 1 [sym_kCase];
     AGroup 13379 1 [sym_kClass]; AGroup 13391 1 [sym_kProperty]; AGroup 13395 1 [sym_kType];
     AGroup 17792 1 [anon_sym_LBRACK]; AGroup 18035 1 [anon_sym_SEMI]; AGroup 18037 1 [sym_kEnd];
     SGroup 2 1 [sym__ppIf]; SGroup 4506 1 [sym_guid]; SGroup 6354 1 [sym__visibility];
     SGroup 9779 1 [sym_ppBlock]; SGroup 9835 1 [sym__declOperator];
     SGroup 10247 1 [sym__declProc]; SGroup 10617 1 [sym_rttiAttributes];
     SGroup 10730 1 [aux_sym_rttiAttributes_repeat2];
     SGroup 13987 1 [aux_sym_genericArg_repeat1]; SGroup 14434 1 [sym_declVariant];
     SGroup 14576 1 [sym__declClass]; AGroup 3 2 syms_5; AGroup 13381 2 syms_65;
     AGroup 13393 2 syms_66; SGroup 5685 2 syms_68; SGroup 10490 3 syms_69;
     AGroup 13383 4 syms_3; AGroup 13371 6 syms_70; SGroup 6150 6 syms_71]);
   (130571, 32, [AGroup 5 1 [sym_ppDirective]; AGroup 13347 1 [anon_sym_LBRACK];
     AGroup 13351 1 [aux_sym_ppUsesBlock_token1]; AGroup 13365 1 [sym_identifier];
     AGroup 13367 1 [sym_kGeneric]; AGroup 13369 1 [sym_kOperator]; AGroup 13373 1 [sym_kStrict];
     AGroup 13377 1 [sym_kCase]; AGroup 13379 1 [sym_kClass]; AGroup 13391 1 [sym_kProperty];
     AGroup 13395 1 [sym_kType]; AGroup 17756 1 [anon_sym_SEMI];
     AGroup 17758 1 [anon_sym_LPAREN]; AGroup 17762 1 [sym_kEnd]; SGroup 2 1 [sym__ppIf];
     SGroup 6354 1 [sym__visibility]; SGroup 9779 1 [sym_ppBlock];
     SGroup 9835 1 [sym__declOperator]; SGroup 10247 1 [sym__declProc];
     SGroup 10617 1 [sym_rttiAttributes]; SGroup 10730 1 [aux_sym_rttiAttributes_repeat2];
     SGroup 13987 1 [aux_sym_genericArg_repeat1]; SGroup 14434 1 [sym_declVariant];
     SGroup 14738 1 [sym__declClass]; AGroup 3 2 syms_5; AGroup 13381 2 syms_65;
     AGroup 13393 2 syms_66; SGroup 5685 2 syms_68; SGroup 10490 3 syms_69;
     AGroup 13383 4 syms_3; AGroup 13371 6 syms_70; SGroup 6150 6 syms_71]);
   (130687, 21, [AGroup 5 1 [sym_ppDirective]; AGroup 15761 1 [anon_sym_LBRACK];
     AGroup 15763 1 [anon_sym_LPAREN]; AGroup 15767 1 [anon_sym_POUND];
     AGroup 15781 1 [sym_kSpecialize]; AGroup 15785 1 [sym_kIf]; AGroup 15787 1 [sym_kInherited];
     AGroup 17864 1 [sym_kString]; SGroup 4138 1 [aux_sym_with_repeat1]; AGroup 3 2 syms_5;
     AGroup 15765 2 syms_6; AGroup 15769 2 syms_7; AGroup 15771 2 syms_8; AGroup 15773 2 syms_9;
     AGroup 15775 2 syms_10; AGroup 15783 2 syms_11; SGroup 9180 2 syms_12;
     SGroup 7467 3 syms_13; SGroup 9750 4 syms_14; AGroup 15777 5 syms_15; SGroup 8804 14 syms_17]);
   (130781, 21, [AGroup 5 1 [sym_ppDirective]; AGroup 15761 1 [anon_sym_LBRACK];
     AGroup 15763 1 [anon_sym_LPAREN]; AGroup 15767 1 [anon_sym_POUND];
     AGroup 15781 1 [sym_kSpecialize]; AGroup 15785 1 [sym_kIf]; AGroup 15787 1 [sym_kInherited];
     AGroup 17864 1 [sym_kString]; SGroup 4102 1 [aux_sym_with_repeat1]; AGroup 3 2 syms_5;
     AGroup 15765 2 syms_6; AGroup 15769 2 syms_7; AGroup 15771 2 syms_8; AGroup 15773 2 syms_9;
     AGroup 15775 2 syms_10; AGroup 15783 2 syms_11; SGroup 9180 2 syms_12;
     SGroup 7467 3 syms_13; SGroup 9783 4 syms_14; AGroup 15777 5 syms_15; SGroup 8804 14 syms_17]);
   (130875, 11, [AGroup 11641 1 [sym_kDispId]; AGroup 11643 1 [sym_kPublic]; AGroup 11645 1 [sym_kMessage];
     AGroup 11647 1 [sym_kDeprecated]; AGroup 11649 1 [sym_kExport]; AGroup 11651 1 [sym_kAlias];
     AGroup 18039 1 [anon_sym_RBRACK]; SGroup 5398 1 [aux_sym__procAttributeNoExt_repeat2];
     SGroup 13229 1 [sym_procAttribute]; AGroup 3 3 syms_1; AGroup 1016 39 syms_33]);
   (130949, 21, [AGroup 5 1 [sym_ppDirective]; AGroup 15761 1 [anon_sym_LBRACK];
     AGroup 15763 1 [anon_sym_LPAREN]; AGroup 15767 1 [anon_sym_POUND];
     AGroup 15781 1 [sym_kSpecialize]; AGroup 15785 1 [sym_kIf]; AGroup 15787 1 [sym_kInherited];
     AGroup 17864 1 [sym_kString]; SGroup 4141 1 [aux_sym_with_repeat1]; AGroup 3 2 syms_5;
     AGroup 15765 2 syms_6; AGroup 15769 2 syms_7; AGroup 15771 2 syms_8; AGroup 15773 2 syms_9;
     AGroup 15775 2 syms_10; AGroup 15783 2 syms_11; SGroup 9180 2 syms_12;
     SGroup 7467 3 syms_13; SGroup 9804 4 syms_14; AGroup 15777 5 syms_15; SGroup 8804 14 syms_17]);
   (131043, 21, [AGroup 5 1 [sym_ppDirective]; AGroup 15761 1 [anon_sym_LBRACK];
     AGroup 15763 1 [anon_sym_LPAREN]; AGroup 15767 1 [anon_sym_POUND];
     AGroup 15781 1 [sym_kSpecialize]; AGroup 15785 1 [sym_kIf]; AGroup 15787 1 [sym_kInherited];
     AGroup 17864 1 [sym_kString]; SGroup 4102 1 [aux_sym_with_repeat1]; AGroup 3 2 syms_5;
     AGroup 15765 2 syms_6; AGroup 15769 2 syms_7; AGroup 15771 2 syms_8; AGroup 15773 2 syms_9;
     AGroup 15775 2 syms_10; AGroup 15783 2 syms_11; SGroup 9180 2 syms_12;
     SGroup 7467 3 syms_13; SGroup 9814 4 syms_14; AGroup 15777 5 syms_15; SGroup 8804 14 syms_17]);
   (131137, 4, [AGroup 5 1 [sym_ppDirective]; AGroup 3 2 syms_5; AGroup 15355 4 syms_25;
     AGroup 15353 44 syms_142]);
   (131197, 21, [AGroup 5 1 [sym_ppDirective]; AGroup 15761 1 [anon_sym_LBRACK];
     AGroup 15763 1 [anon_sym_LPAREN]; AGroup 15767 1 [anon_sym_POUND];
     AGroup 15781 1 [sym_kSpecialize]; AGroup 15785 1 [sym_kIf]; AGroup 15787 1 [sym_kInherited];
     AGroup 17864 1 [sym_kString]; SGroup 4144 1 [aux_sym_with_repeat1]; AGroup 3 2 syms_5;
     AGroup 15765 2 syms_6; AGroup 15769 2 syms_7; AGroup 15771 2 syms_8; AGroup 15773 2 syms_9;
     AGroup 15775 2 syms_10; AGroup 15783 2 syms_11; SGroup 9180 2 syms_12;
     SGroup 7467 3 syms_13; SGroup 9639 4 syms_14; AGroup 15777 5 syms_15; SGroup 8804 14 syms_17]);
   (131291, 21, [AGroup 5 1 [sym_ppDirective]; AGroup 15761 1 [anon_sym_LBRACK];
     AGroup 15763 1 [anon_sym_LPAREN]; AGroup 15767 1 [anon_sym_POUND];
     AGroup 15781 1 [sym_kSpecialize]; AGroup 15785 1 [sym_kIf]; AGroup 15787 1 [sym_kInherited];
     AGroup 17864 1 [sym_kString]; SGroup 4102 1 [aux_sym_with_repeat1]; AGroup 3 2 syms_5;
     AGroup 15765 2 syms_6; AGroup 15769 2 syms_7; AGroup 15771 2 syms_8; AGroup 15773 2 syms_9;
     AGroup 15775 2 syms_10; AGroup 15783 2 syms_11; SGroup 9180 2 syms_12;
     SGroup 7467 3 syms_13; SGroup 9658 4 syms_14; AGroup 15777 5 syms_15; SGroup 8804 14 syms_17]);
   (131385, 21, [AGroup 5 1 [sym_ppDirective]; AGroup 15761 1 [anon_sym_LBRACK];
     AGroup 15763 1 [anon_sym_LPAREN]; AGroup 15767 1 [anon_sym_POUND];
     AGroup 15781 1 [sym_kSpecialize]; AGroup 15785 1 [sym_kIf]; AGroup 15787 1 [sym_kInherited];
     AGroup 17864 1 [sym_kString]; SGroup 4146 1 [aux_sym_with_repeat1]; AGroup 3 2 syms_5;
     AGroup 15765 2 syms_6; AGroup 15769 2 syms_7; AGroup 15771 2 syms_8; AGroup 15773 2 syms_9;
     AGroup 15775 2 syms_10; AGroup 15783 2 syms_11; SGroup 9180 2 syms_12;
     SGroup 7467 3 syms_13; SGroup 9675 4 syms_14; AGroup 15777 5 syms_15; SGroup 8804 14 syms_17]);
   (131479, 21, [AGroup 5 1 [sym_ppDirective]; AGroup 15761 1 [anon_sym_LBRACK];
     AGroup 15763 1 [anon_sym_LPAREN]; AGroup 15767 1 [anon_sym_POUND];
     AGroup 15781 1 [sym_kSpecialize]; AGroup 15785 1 [sym_kIf]; AGroup 15787 1 [sym_kInherited];
     AGroup 17864 1 [sym_kString]; SGroup 4102 1 [aux_sym_with_repeat1]; AGroup 3 2 syms_5;
     AGroup 15765 2 syms_6; AGroup 15769 2 syms_7; AGroup 15771 2 syms_8; AGroup 15773 2 syms_9;
     AGroup 15775 2 syms_10; AGroup 15783 2 syms_11; SGroup 9180 2 syms_12;
     SGroup 7467 3 syms_13; SGroup 9695 4 syms_14; AGroup 15777 5 syms_15; SGroup 8804 14 syms_17]);
   (131573, 21, [AGroup 5 1 [sym_ppDirective]; AGroup 15761 1 [anon_sym_LBRACK];
     AGroup 15763 1 [anon_sym_LPAREN]; AGroup 15767 1 [anon_sym_POUND];
     AGroup 15781 1 [sym_kSpecialize]; AGroup 15785 1 [sym_kIf]; AGroup 15787 1 [sym_kInherited];
     AGroup 17864 1 [sym_kString]; SGroup 4148 1 [aux_sym_with_repeat1]; AGroup 3 2 syms_5;
     AGroup 15765 2 syms_6; AGroup 15769 2 syms_7; AGroup 15771 2 syms_8; AGroup 15773 2 syms_9;
     AGroup 15775 2 syms_10; AGroup 15783 2 syms_11; SGroup 9180 2 syms_12;
     SGroup 7467 3 syms_13; SGroup 9714 4 syms_14; AGroup 15777 5 syms_15; SGroup 8804 14 syms_17]);
   (131667, 21, [AGroup 5 1 [sym_ppDirective]; AGroup 15761 1 [anon_sym_LBRACK];
     AGroup 15763 1 [anon_sym_LPAREN]; AGroup 15767 1 [anon_sym_POUND];
     AGroup 15781 1 [sym_kSpecialize]; AGroup 15785 1 [sym_kIf]; AGroup 15787 1 [sym_kInherited];
     AGroup 17864 1 [sym_kString]; SGroup 4102 1 [aux_sym_with_repeat1]; AGroup 3 2 syms_5;
     AGroup 15765 2 syms_6; AGroup 15769 2 syms_7; AGroup 15771 2 syms_8; AGroup 15773 2 syms_9;
     AGroup 15775 2 syms_10; AGroup 15783 2 syms_11; SGroup 9180 2 syms_12;
     SGroup 7467 3 syms_13; SGroup 9741 4 syms_14; AGroup 15777 5 syms_15; SGroup 8804 14 syms_17]);
   (131761, 21, [AGroup 5 1 [sym_ppDirective]; AGroup 15761 1 [anon_sym_LBRACK];
     AGroup 15763 1 [anon_sym_LPAREN]; AGroup 15767 1 [anon_sym_POUND];
     AGroup 15781 1 [sym_kSpecialize]; AGroup 15785 1 [sym_kIf]; AGroup 15787 1 [sym_kInherited];
     AGroup 17864 1 [sym_kString]; SGroup 4150 1 [aux_sym_with_repeat1]; AGroup 3 2 syms_5;
     AGroup 15765 2 syms_6; AGroup 15769 2 syms_7; AGroup 15771 2 syms_8; AGroup 15773 2 syms_9;
     AGroup 15775 2 syms_10; AGroup 15783 2 syms_11; SGroup 9180 2 syms_12;
     SGroup 7467 3 syms_13; SGroup 9755 4 syms_14; AGroup 15777 5 syms_15; SGroup 8804 14 syms_17]);
   (131855, 21, [AGroup 5 1 [sym_ppDirective]; AGroup 15761 1 [anon_sym_LBRACK];
     AGroup 15763 1 [anon_sym_LPAREN]; AGroup 15767 1 [anon_sym_POUND];
     AGroup 15781 1 [sym_kSpecialize]; AGroup 15785 1 [sym_kIf]; AGroup 15787 1 [sym_kInherited];
     AGroup 17864 1 [sym_kString]; SGroup 4102 1 [aux_sym_with_repeat1]; AGroup 3 2 syms_5;
     AGroup 15765 2 syms_6; AGroup 15769 2 syms_7; AGroup 15771 2 syms_8; AGroup 15773 2 syms_9;
     AGroup 15775 2 syms_10; AGroup 15783 2 syms_11; SGroup 9180 2 syms_12;
     SGroup 7467 3 syms_13; SGroup 9758 4 syms_14; AGroup 15777 5 syms_15; SGroup 8804 14 syms_17]);
   (131949, 21, [AGroup 5 1 [sym_ppDirective]; AGroup 18041 1 [anon_sym_LBRACK];
     AGroup 18044 1 [anon_sym_LPAREN]; AGroup 18050 1 [anon_sym_POUND];
     AGroup 18068 1 [sym_kSpecialize]; AGroup 18074 1 [sym_kIf]; AGroup 18077 1 [sym_kInherited];
     AGroup 18080 1 [sym_kString]; SGroup 4151 1 [aux_sym_exprArgs_repeat1]; AGroup 3 2 syms_5;
     AGroup 18047 2 syms_6; AGroup 18053 2 syms_7; AGroup 18056 2 syms_8; AGroup 18059 2 syms_9;
     AGroup 18062 2 syms_10; AGroup 18071 2 syms_11; SGroup 8129 2 syms_12;
     SGroup 7100 3 syms_13; SGroup 9379 4 syms_14; AGroup 18065 5 syms_15; SGroup 7786 14 syms_17]);
   (132043, 21, [AGroup 5 1 [sym_ppDirective]; AGroup 15761 1 [anon_sym_LBRACK];
     AGroup 15763 1 [anon_sym_LPAREN]; AGroup 15767 1 [anon_sym_POUND];
     AGroup 15781 1 [sym_kSpecialize]; AGroup 15785 1 [sym_kIf]; AGroup 15787 1 [sym_kInherited];
     AGroup 17864 1 [sym_kString]; SGroup 4153 1 [aux_sym_with_repeat1]; AGroup 3 2 syms_5;
     AGroup 15765 2 syms_6; AGroup 15769 2 syms_7; AGroup 15771 2 syms_8; AGroup 15773 2 syms_9;
     AGroup 15775 2 syms_10; AGroup 15783 2 syms_11; SGroup 9180 2 syms_12;
     SGroup 7467 3 syms_13; SGroup 9768 4 syms_14; AGroup 15777 5 syms_15; SGroup 8804 14 syms_17]);
   (132137, 21, [AGroup 5 1 [sym_ppDirective]; AGroup 15761 1 [anon_sym_LBRACK];
     AGroup 15763 1 [anon_sym_LPAREN]; AGroup 15767 1 [anon_sym_POUND];
     AGroup 15781 1 [sym_kSpecialize]; AGroup 15785 1 [sym_kIf]; AGroup 15787 1 [sym_kInherited];
     AGroup 17864 1 [sym_kString]; SGroup 4102 1 [aux_sym_with_repeat1]; AGroup 3 2 syms_5;
     AGroup 15765 2 syms_6; AGroup 15769 2 syms_7; AGroup 15771 2 syms_8; AGroup 15773 2 syms_9;
     AGroup 15775 2 syms_10; AGroup 15783 2 syms_11; SGroup 9180 2 syms_12;
     SGroup 7467 3 syms_13; SGroup 9771 4 syms_14; AGroup 15777 5 syms_15; SGroup 8804 14 syms_17]);
   (132231, 5, [AGroup 5 1 [sym_ppDirective]; AGroup 3 2 syms_5; AGroup 15439 4 syms_25;
     AGroup 15403 18 syms_36; AGroup 15437 26 syms_138]);
   (132293, 21, [AGroup 5 1 [sym_ppDirective]; AGroup 15761 1 [anon_sym_LBRACK];
     AGroup 15763 1 [anon_sym_LPAREN]; AGroup 15767 1 [anon_sym_POUND];
     AGroup 15781 1 [sym_kSpecialize]; AGroup 15785 1 [sym_kIf]; AGroup 15787 1 [sym_kInherited];
     AGroup 17864 1 [sym_kString]; SGroup 4156 1 [aux_sym_with_repeat1]; AGroup 3 2 syms_5;
     AGroup 15765 2 syms_6; AGroup 15769 2 syms_7; AGroup 15771 2 syms_8; AGroup 15773 2 syms_9;
     AGroup 15775 2 syms_10; AGroup 15783 2 syms_11; SGroup 9180 2 syms_12;
     SGroup 7467 3 syms_13; SGroup 9780 4 syms_14; AGroup 15777 5 syms_15; SGroup 8804 14 syms_17]);
   (132387, 21, [AGroup 5 1 [sym_ppDirective]; AGroup 15761 1 [anon_sym_LBRACK];
     AGroup 15763 1 [anon_sym_LPAREN]; AGroup 15767 1 [anon_sym_POUND];
     AGroup 15781 1 [sym_kSpecialize]; AGroup 15785 1 [sym_kIf]; AGroup 15787 1 [sym_kInherited];
     AGroup 17864 1 [sym_kString]; SGroup 4102 1 [aux_sym_with_repeat1]; AGroup 3 2 syms_5;
     AGroup 15765 2 syms_6; AGroup 15769 2 syms_7; AGroup 15771 2 syms_8; AGroup 15773 2 syms_9;
     AGroup 15775 2 syms_10; AGroup 15783 2 syms_11; SGroup 9180 2 syms_12;
     SGroup 7467 3 syms_13; SGroup 9786 4 syms_14; AGroup 15777 5 syms_15; SGroup 8804 14 syms_17]);
   (132481, 5, [AGroup 5 1 [sym_ppDirective]; AGroup 3 2 syms_5; AGroup 15488 4 syms_25;
     AGroup 15403 18 syms_36; AGroup 15486 26 syms_138]);
   (132543, 21, [AGroup 5 1 [sym_ppDirective]; AGroup 15761 1 [anon_sym_LBRACK];
     AGroup 15763 1 [anon_sym_LPAREN]; AGroup 15767 1 [anon_sym_POUND];
     AGroup 15781 1 [sym_kSpecialize]; AGroup 15785 1 [sym_kIf]; AGroup 15787 1 [sym_kInherited];
     AGroup 17864 1 [sym_kString]; SGroup 4159 1 [aux_sym_with_repeat1]; AGroup 3 2 syms_5;
     AGroup 15765 2 syms_6; AGroup 15769 2 syms_7; AGroup 15771 2 syms_8; AGroup 15773 2 syms_9;
     AGroup 15775 2 syms_10; AGroup 15783 2 syms_11; SGroup 9180 2 syms_12;
     SGroup 7467 3 syms_13; SGroup 9798 4 syms_14; AGroup 15777 5 syms_15; SGroup 8804 14 syms_17])
  ].

(** States 4159 to 4258. *)
Definition small_runs_4159 : list small_run :=
  [
   (132637, 21, [AGroup 5 1 [sym_ppDirective]; AGroup 15761 1 [anon_sym_LBRACK];
     AGroup 15763 1 [anon_sym_LPAREN]; AGroup 15767 1 [anon_sym_POUND];
     AGroup 15781 1 [sym_kSpecialize]; AGroup 15785 1 [sym_kIf]; AGroup 15787 1 [sym_kInherited];
     AGroup 17864 1 [sym_kString]; SGroup 4102 1 [aux_sym_with_repeat1]; AGroup 3 2 syms_5;
     AGroup 15765 2 syms_6; AGroup 15769 2 syms_7; AGroup 15771 2 syms_8; AGroup 15773 2 syms_9;
     AGroup 15775 2 syms_10; AGroup 15783 2 syms_11; SGroup 9180 2 syms_12;
     SGroup 7467 3 syms_13; SGroup 9803 4 syms_14; AGroup 15777 5 syms_15; SGroup 8804 14 syms_17]);
   (132731, 21, [AGroup 5 1 [sym_ppDirective]; AGroup 15761 1 [anon_sym_LBRACK];
     AGroup 15763 1 [anon_sym_LPAREN]; AGroup 15767 1 [anon_sym_POUND];
     AGroup 15781 1 [sym_kSpecialize]; AGroup 15785 1 [sym_kIf]; AGroup 15787 1 [sym_kInherited];
     AGroup 17864 1 [sym_kString]; SGroup 4161 1 [aux_sym_with_repeat1]; AGroup 3 2 syms_5;
     AGroup 15765 2 syms_6; AGroup 15769 2 syms_7; AGroup 15771 2 syms_8; AGroup 15773 2 syms_9;
     AGroup 15775 2 syms_10; AGroup 15783 2 syms_11; SGroup 9180 2 syms_12;
     SGroup 7467 3 syms_13; SGroup 9821 4 syms_14; AGroup 15777 5 syms_15; SGroup 8804 14 syms_17]);
   (132825, 21, [AGroup 5 1 [sym_ppDirective]; AGroup 15761 1 [anon_sym_LBRACK];
     AGroup 15763 1 [anon_sym_LPAREN]; AGroup 15767 1 [anon_sym_POUND];
     AGroup 15781 1 [sym_kSpecialize]; AGroup 15785 1 [sym_kIf]; AGroup 15787 1 [sym_kInherited];
     AGroup 17864 1 [sym_kString]; SGroup 4102 1 [aux_sym_with_repeat1]; AGroup 3 2 syms_5;
     AGroup 15765 2 syms_6; AGroup 15769 2 syms_7; AGroup 15771 2 syms_8; AGroup 15773 2 syms_9;
     AGroup 15775 2 syms_10; AGroup 15783 2 syms_11; SGroup 9180 2 syms_12;
     SGroup 7467 3 syms_13; SGroup 9823 4 syms_14; AGroup 15777 5 syms_15; SGroup 8804 14 syms_17]);
   (132919, 21, [AGroup 5 1 [sym_ppDirective]; AGroup 15761 1 [anon_sym_LBRACK];
     AGroup 15763 1 [anon_sym_LPAREN]; AGroup 15767 1 [anon_sym_POUND];
     AGroup 15781 1 [sym_kSpecialize]; AGroup 15785 1 [sym_kIf]; AGroup 15787 1 [sym_kInherited];
     AGroup 17864 1 [sym_kString]; SGroup 4163 1 [aux_sym_with_repeat1]; AGroup 3 2 syms_5;
     AGroup 15765 2 syms_6; AGroup 15769 2 syms_7; AGroup 15771 2 syms_8; AGroup 15773 2 syms_9;
     AGroup 15775 2 syms_10; AGroup 15783 2 syms_11; SGroup 9180 2 syms_12;
     SGroup 7467 3 syms_13; SGroup 9702 4 syms_14; AGroup 15777 5 syms_15; SGroup 8804 14 syms_17]);
   (133013, 21, [AGroup 5 1 [sym_ppDirective]; AGroup 15761 1 [anon_sym_LBRACK];
     AGroup 15763 1 [anon_sym_LPAREN]; AGroup 15767 1 [anon_sym_POUND];
     AGroup 15781 1 [sym_kSpecialize]; AGroup 15785 1 [sym_kIf]; AGroup 15787 1 [sym_kInherited];
     AGroup 17864 1 [sym_kString]; SGroup 4102 1 [aux_sym_with_repeat1]; AGroup 3 2 syms_5;
     AGroup 15765 2 syms_6; AGroup 15769 2 syms_7; AGroup 15771 2 syms_8; AGroup 15773 2 syms_9;
     AGroup 15775 2 syms_10; AGroup 15783 2 syms_11; SGroup 9180 2 syms_12;
     SGroup 7467 3 syms_13; SGroup 9724 4 syms_14; AGroup 15777 5 syms_15; SGroup 8804 14 syms_17]);
   (133107, 21, [AGroup 5 1 [sym_ppDirective]; AGroup 15761 1 [anon_sym_LBRACK];
     AGroup 15763 1 [anon_sym_LPAREN]; AGroup 15767 1 [anon_sym_POUND];
     AGroup 15781 1 [sym_kSpecialize]; AGroup 15785 1 [sym_kIf]; AGroup 15787 1 [sym_kInherited];
     AGroup 17864 1 [sym_kString]; SGroup 4165 1 [aux_sym_with_repeat1]; AGroup 3 2 syms_5;
     AGroup 15765 2 syms_6; AGroup 15769 2 syms_7; AGroup 15771 2 syms_8; AGroup 15773 2 syms_9;
     AGroup 15775 2 syms_10; AGroup 15783 2 syms_11; SGroup 9180 2 syms_12;
     SGroup 7467 3 syms_13; SGroup 9819 4 syms_14; AGroup 15777 5 syms_15; SGroup 8804 14 syms_17]);
   (133201, 21, [AGroup 5 1 [sym_ppDirective]; AGroup 15761 1 [anon_sym_LBRACK];
     AGroup 15763 1 [anon_sym_LPAREN]; AGroup 15767 1 [anon_sym_POUND];
     AGroup 15781 1 [sym_kSpecialize]; AGroup 15785 1 [sym_kIf]; AGroup 15787 1 [sym_kInherited];
     AGroup 17864 1 [sym_kString]; SGroup 4102 1 [aux_sym_with_repeat1]; AGroup 3 2 syms_5;
     AGroup 15765 2 syms_6; AGroup 15769 2 syms_7; AGroup 15771 2 syms_8; AGroup 15773 2 syms_9;
     AGroup 15775 2 syms_10; AGroup 15783 2 syms_11; SGroup 9180 2 syms_12;
     SGroup 7467 3 syms_13; SGroup 9650 4 syms_14; AGroup 15777 5 syms_15; SGroup 8804 14 syms_17]);
   (133295, 21, [AGroup 5 1 [sym_ppDirective]; AGroup 15761 1 [anon_sym_LBRACK];
     AGroup 15763 1 [anon_sym_LPAREN]; AGroup 15767 1 [anon_sym_POUND];
     AGroup 15781 1 [sym_kSpecialize]; AGroup 15785 1 [sym_kIf]; AGroup 15787 1 [sym_kInherited];
     AGroup 17864 1 [sym_kString]; SGroup 4167 1 [aux_sym_with_repeat1]; AGroup 3 2 syms_5;
     AGroup 15765 2 syms_6; AGroup 15769 2 syms_7; AGroup 15771 2 syms_8; AGroup 15773 2 syms_9;
     AGroup 15775 2 syms_10; AGroup 15783 2 syms_11; SGroup 9180 2 syms_12;
     SGroup 7467 3 syms_13; SGroup 9625 4 syms_14; AGroup 15777 5 syms_15; SGroup 8804 14 syms_17]);
   (133389, 21, [AGroup 5 1 [sym_ppDirective]; AGroup 15761 1 [anon_sym_LBRACK];
     AGroup 15763 1 [anon_sym_LPAREN]; AGroup 15767 1 [anon_sym_POUND];
     AGroup 15781 1 [sym_kSpecialize]; AGroup 15785 1 [sym_kIf]; AGroup 15787 1 [sym_kInherited];
     AGroup 17864 1 [sym_kString]; SGroup 4102 1 [aux_sym_with_repeat1]; AGroup 3 2 syms_5;
     AGroup 15765 2 syms_6; AGroup 15769 2 syms_7; AGroup 15771 2 syms_8; AGroup 15773 2 syms_9;
     AGroup 15775 2 syms_10; AGroup 15783 2 syms_11; SGroup 9180 2 syms_12;
     SGroup 7467 3 syms_13; SGroup 9681 4 syms_14; AGroup 15777 5 syms_15; SGroup 8804 14 syms_17]);
   (133483, 21, [AGroup 5 1 [sym_ppDirective]; AGroup 15761 1 [anon_sym_LBRACK];
     AGroup 15763 1 [anon_sym_LPAREN]; AGroup 15767 1 [anon_sym_POUND];
     AGroup 15781 1 [sym_kSpecialize]; AGroup 15785 1 [sym_kIf]; AGroup 15787 1 [sym_kInherited];
     AGroup 17864 1 [sym_kString]; SGroup 4169 1 [aux_sym_with_repeat1]; AGroup 3 2 syms_5;
     AGroup 15765 2 syms_6; AGroup 15769 2 syms_7; AGroup 15771 2 syms_8; AGroup 15773 2 syms_9;
     AGroup 15775 2 syms_10; AGroup 15783 2 syms_11; SGroup 9180 2 syms_12;
     SGroup 7467 3 syms_13; SGroup 9796 4 syms_14; AGroup 15777 5 syms_15; SGroup 8804 14 syms_17]);
   (133577, 21, [AGroup 5 1 [sym_ppDirective]; AGroup 15761 1 [anon_sym_LBRACK];
     AGroup 15763 1 [anon_sym_LPAREN]; AGroup 15767 1 [anon_sym_POUND];
     AGroup 15781 1 [sym_kSpecialize]; AGroup 15785 1 [sym_kIf]; AGroup 15787 1 [sym_kInherited];
     AGroup 17864 1 [sym_kString]; SGroup 4102 1 [aux_sym_with_repeat1]; AGroup 3 2 syms_5;
     AGroup 15765 2 syms_6; AGroup 15769 2 syms_7; AGroup 15771 2 syms_8; AGroup 15773 2 syms_9;
     AGroup 15775 2 syms_10; AGroup 15783 2 syms_11; SGroup 9180 2 syms_12;
     SGroup 7467 3 syms_13; SGroup 9807 4 syms_14; AGroup 15777 5 syms_15; SGroup 8804 14 syms_17]);
   (133671, 21, [AGroup 5 1 [sym_ppDirective]; AGroup 15761 1 [anon_sym_LBRACK];
     AGroup 15763 1 [anon_sym_LPAREN]; AGroup 15767 1 [anon_sym_POUND];
     AGroup 15781 1 [sym_kSpecialize]; AGroup 15785 1 [sym_kIf]; AGroup 15787 1 [sym_kInherited];
     AGroup 17864 1 [sym_kString]; SGroup 4171 1 [aux_sym_with_repeat1]; AGroup 3 2 syms_5;
     AGroup 15765 2 syms_6; AGroup 15769 2 syms_7; AGroup 15771 2 syms_8; AGroup 15773 2 syms_9;
     AGroup 15775 2 syms_10; AGroup 15783 2 syms_11; SGroup 9180 2 syms_12;
     SGroup 7467 3 syms_13; SGroup 9665 4 syms_14; AGroup 15777 5 syms_15; SGroup 8804 14 syms_17]);
   (133765, 21, [AGroup 5 1 [sym_ppDirective]; AGroup 15761 1 [anon_sym_LBRACK];
     AGroup 15763 1 [anon_sym_LPAREN]; AGroup 15767 1 [anon_sym_POUND];
     AGroup 15781 1 [sym_kSpecialize]; AGroup 15785 1 [sym_kIf]; AGroup 15787 1 [sym_kInherited];
     AGroup 17864 1 [sym_kString]; SGroup 4102 1 [aux_sym_with_repeat1]; AGroup 3 2 syms_5;
     AGroup 15765 2 syms_6; AGroup 15769 2 syms_7; AGroup 15771 2 syms_8; AGroup 15773 2 syms_9;
     AGroup 15775 2 syms_10; AGroup 15783 2 syms_11; SGroup 9180 2 syms_12;
     SGroup 7467 3 syms_13; SGroup 9659 4 syms_14; AGroup 15777 5 syms_15; SGroup 8804 14 syms_17]);
   (133859, 21, [AGroup 5 1 [sym_ppDirective]; AGroup 15761 1 [anon_sym_LBRACK];
     AGroup 15763 1 [anon_sym_LPAREN]; AGroup 15767 1 [anon_sym_POUND];
     AGroup 15781 1 [sym_kSpecialize]; AGroup 15785 1 [sym_kIf]; AGroup 15787 1 [sym_kInherited];
     AGroup 17864 1 [sym_kString]; SGroup 4173 1 [aux_sym_with_repeat1]; AGroup 3 2 syms_5;
     AGroup 15765 2 syms_6; AGroup 15769 2 syms_7; AGroup 15771 2 syms_8; AGroup 15773 2 syms_9;
     AGroup 15775 2 syms_10; AGroup 15783 2 syms_11; SGroup 9180 2 syms_12;
     SGroup 7467 3 syms_13; SGroup 9746 4 syms_14; AGroup 15777 5 syms_15; SGroup 8804 14 syms_17]);
   (133953, 21, [AGroup 5 1 [sym_ppDirective]; AGroup 15761 1 [anon_sym_LBRACK];
     AGroup 15763 1 [anon_sym_LPAREN]; AGroup 15767 1 [anon_sym_POUND];
     AGroup 15781 1 [sym_kSpecialize]; AGroup 15785 1 [sym_kIf]; AGroup 15787 1 [sym_kInherited];
     AGroup 17864 1 [sym_kString]; SGroup 4102 1 [aux_sym_with_repeat1]; AGroup 3 2 syms_5;
     AGroup 15765 2 syms_6; AGroup 15769 2 syms_7; AGroup 15771 2 syms_8; AGroup 15773 2 syms_9;
     AGroup 15775 2 syms_10; AGroup 15783 2 syms_11; SGroup 9180 2 syms_12;
     SGroup 7467 3 syms_13; SGroup 9788 4 syms_14; AGroup 15777 5 syms_15; SGroup 8804 14 syms_17]);
   (134047, 21, [AGroup 5 1 [sym_ppDirective]; AGroup 15761 1 [anon_sym_LBRACK];
     AGroup 15763 1 [anon_sym_LPAREN]; AGroup 15767 1 [anon_sym_POUND];
     AGroup 15781 1 [sym_kSpecialize]; AGroup 15785 1 [sym_kIf]; AGroup 15787 1 [sym_kInherited];
     AGroup 17864 1 [sym_kString]; SGroup 4102 1 [aux_sym_with_repeat1]; AGroup 3 2 syms_5;
     AGroup 15765 2 syms_6; AGroup 15769 2 syms_7; AGroup 15771 2 syms_8; AGroup 15773 2 syms_9;
     AGroup 15775 2 syms_10; AGroup 15783 2 syms_11; SGroup 9180 2 syms_12;
     SGroup 7467 3 syms_13; SGroup 9669 4 syms_14; AGroup 15777 5 syms_15; SGroup 8804 14 syms_17]);
   (134141, 21, [AGroup 5 1 [sym_ppDirective]; AGroup 15761 1 [anon_sym_LBRACK];
     AGroup 15763 1 [anon_sym_LPAREN]; AGroup 15767 1 [anon_sym_POUND];
     AGroup 15781 1 [sym_kSpecialize]; AGroup 15785 1 [sym_kIf]; AGroup 15787 1 [sym_kInherited];
     AGroup 17864 1 [sym_kString]; SGroup 4176 1 [aux_sym_with_repeat1]; AGroup 3 2 syms_5;
     AGroup 15765 2 syms_6; AGroup 15769 2 syms_7; AGroup 15771 2 syms_8; AGroup 15773 2 syms_9;
     AGroup 15775 2 syms_10; AGroup 15783 2 syms_11; SGroup 9180 2 syms_12;
     SGroup 7467 3 syms_13; SGroup 9717 4 syms_14; AGroup 15777 5 syms_15; SGroup 8804 14 syms_17]);
   (134235, 21, [AGroup 5 1 [sym_ppDirective]; AGroup 15761 1 [anon_sym_LBRACK];
     AGroup 15763 1 [anon_sym_LPAREN]; AGroup 15767 1 [anon_sym_POUND];
     AGroup 15781 1 [sym_kSpecialize]; AGroup 15785 1 [sym_kIf]; AGroup 15787 1 [sym_kInherited];
     AGroup 17864 1 [sym_kString]; SGroup 4102 1 [aux_sym_with_repeat1]; AGroup 3 2 syms_5;
     AGroup 15765 2 syms_6; AGroup 15769 2 syms_7; AGroup 15771 2 syms_8; AGroup 15773 2 syms_9;
     AGroup 15775 2 syms_10; AGroup 15783 2 syms_11; SGroup 9180 2 syms_12;
     SGroup 7467 3 syms_13; SGroup 9740 4 syms_14; AGroup 15777 5 syms_15; SGroup 8804 14 syms_17]);
   (134329, 21, [AGroup 5 1 [sym_ppDirective]; AGroup 15761 1 [anon_sym_LBRACK];
     AGroup 15763 1 [anon_sym_LPAREN]; AGroup 15767 1 [anon_sym_POUND];
     AGroup 15781 1 [sym_kSpecialize]; AGroup 15785 1 [sym_kIf]; AGroup 15787 1 [sym_kInherited];
     AGroup 17864 1 [sym_kString]; SGroup 4178 1 [aux_sym_with_repeat1]; AGroup 3 2 syms_5;
     AGroup 15765 2 syms_6; AGroup 15769 2 syms_7; AGroup 15771 2 syms_8; AGroup 15773 2 syms_9;
     AGroup 15775 2 syms_10; AGroup 15783 2 syms_11; SGroup 9180 2 syms_12;
     SGroup 7467 3 syms_13; SGroup 9808 4 syms_14; AGroup 15777 5 syms_15; SGroup 8804 14 syms_17]);
   (134423, 21, [AGroup 5 1 [sym_ppDirective]; AGroup 15761 1 [anon_sym_LBRACK];
     AGroup 15763 1 [anon_sym_LPAREN]; AGroup 15767 1 [anon_sym_POUND];
     AGroup 15781 1 [sym_kSpecialize]; AGroup 15785 1 [sym_kIf]; AGroup 15787 1 [sym_kInherited];
     AGroup 17864 1 [sym_kString]; SGroup 4102 1 [aux_sym_with_repeat1]; AGroup 3 2 syms_5;
     AGroup 15765 2 syms_6; AGroup 15769 2 syms_7; AGroup 15771 2 syms_8; AGroup 15773 2 syms_9;
     AGroup 15775 2 syms_10; AGroup 15783 2 syms_11; SGroup 9180 2 syms_12;
     SGroup 7467 3 syms_13; SGroup 9631 4 syms_14; AGroup 15777 5 syms_15; SGroup 8804 14 syms_17]);
   (134517, 21, [AGroup 5 1 [sym_ppDirective]; AGroup 15761 1 [anon_sym_LBRACK];
     AGroup 15763 1 [anon_sym_LPAREN]; AGroup 15767 1 [anon_sym_POUND];
     AGroup 15781 1 [sym_kSpecialize]; AGroup 15785 1 [sym_kIf]; AGroup 15787 1 [sym_kInherited];
     AGroup 17864 1 [sym_kString]; SGroup 4180 1 [aux_sym_with_repeat1]; AGroup 3 2 syms_5;
     AGroup 15765 2 syms_6; AGroup 15769 2 syms_7; AGroup 15771 2 syms_8; AGroup 15773 2 syms_9;
     AGroup 15775 2 syms_10; AGroup 15783 2 syms_11; SGroup 9180 2 syms_12;
     SGroup 7467 3 syms_13; SGroup 9684 4 syms_14; AGroup 15777 5 syms_15; SGroup 8804 14 syms_17]);
   (134611, 21, [AGroup 5 1 [sym_ppDirective]; AGroup 15761 1 [anon_sym_LBRACK];
     AGroup 15763 1 [anon_sym_LPAREN]; AGroup 15767 1 [anon_sym_POUND];
     AGroup 15781 1 [sym_kSpecialize]; AGroup 15785 1 [sym_kIf]; AGroup 15787 1 [sym_kInherited];
     AGroup 17864 1 [sym_kString]; SGroup 4102 1 [aux_sym_with_repeat1]; AGroup 3 2 syms_5;
     AGroup 15765 2 syms_6; AGroup 15769 2 syms_7; AGroup 15771 2 syms_8; AGroup 15773 2 syms_9;
     AGroup 15775 2 syms_10; AGroup 15783 2 syms_11; SGroup 9180 2 syms_12;
     SGroup 7467 3 syms_13; SGroup 9716 4 syms_14; AGroup 15777 5 syms_15; SGroup 8804 14 syms_17]);
   (134705, 21, [AGroup 5 1 [sym_ppDirective]; AGroup 18083 1 [anon_sym_LBRACK];
     AGroup 18086 1 [anon_sym_LPAREN]; AGroup 18092 1 [anon_sym_POUND];
     AGroup 18110 1 [sym_kSpecialize]; AGroup 18116 1 [sym_kIf]; AGroup 18119 1 [sym_kInherited];
     AGroup 18122 1 [sym_kString]; SGroup 4181 1 [aux_sym_declProp_repeat1]; AGroup 3 2 syms_5;
     AGroup 18089 2 syms_6; AGroup 18095 2 syms_7; AGroup 18098 2 syms_8; AGroup 18101 2 syms_9;
     AGroup 18104 2 syms_10; AGroup 18113 2 syms_11; SGroup 8129 2 syms_12;
     SGroup 7100 3 syms_13; SGroup 10092 4 syms_14; AGroup 18107 5 syms_15;
     SGroup 7786 14 syms_17]);
   (134799, 21, [AGroup 5 1 [sym_ppDirective]; AGroup 15761 1 [anon_sym_LBRACK];
     AGroup 15763 1 [anon_sym_LPAREN]; AGroup 15767 1 [anon_sym_POUND];
     AGroup 15781 1 [sym_kSpecialize]; AGroup 15785 1 [sym_kIf]; AGroup 15787 1 [sym_kInherited];
     AGroup 17864 1 [sym_kString]; SGroup 4183 1 [aux_sym_with_repeat1]; AGroup 3 2 syms_5;
     AGroup 15765 2 syms_6; AGroup 15769 2 syms_7; AGroup 15771 2 syms_8; AGroup 15773 2 syms_9;
     AGroup 15775 2 syms_10; AGroup 15783 2 syms_11; SGroup 9180 2 syms_12;
     SGroup 7467 3 syms_13; SGroup 9749 4 syms_14; AGroup 15777 5 syms_15; SGroup 8804 14 syms_17]);
   (134893, 21, [AGroup 5 1 [sym_ppDirective]; AGroup 15761 1 [anon_sym_LBRACK];
     AGroup 15763 1 [anon_sym_LPAREN]; AGroup 15767 1 [anon_sym_POUND];
     AGroup 15781 1 [sym_kSpecialize]; AGroup 15785 1 [sym_kIf]; AGroup 15787 1 [sym_kInherited];
     AGroup 17864 1 [sym_kString]; SGroup 4102 1 [aux_sym_with_repeat1]; AGroup 3 2 syms_5;
     AGroup 15765 2 syms_6; AGroup 15769 2 syms_7; AGroup 15771 2 syms_8; AGroup 15773 2 syms_9;
     AGroup 15775 2 syms_10; AGroup 15783 2 syms_11; SGroup 9180 2 syms_12;
     SGroup 7467 3 syms_13; SGroup 9752 4 syms_14; AGroup 15777 5 syms_15; SGroup 8804 14 syms_17]);
   (134987, 21, [AGroup 5 1 [sym_ppDirective]; AGroup 15761 1 [anon_sym_LBRACK];
     AGroup 15763 1 [anon_sym_LPAREN]; AGroup 15767 1 [anon_sym_POUND];
     AGroup 15781 1 [sym_kSpecialize]; AGroup 15785 1 [sym_kIf]; AGroup 15787 1 [sym_kInherited];
     AGroup 17864 1 [sym_kString]; SGroup 4185 1 [aux_sym_with_repeat1]; AGroup 3 2 syms_5;
     AGroup 15765 2 syms_6; AGroup 15769 2 syms_7; AGroup 15771 2 syms_8; AGroup 15773 2 syms_9;
     AGroup 15775 2 syms_10; AGroup 15783 2 syms_11; SGroup 9180 2 syms_12;
     SGroup 7467 3 syms_13; SGroup 9816 4 syms_14; AGroup 15777 5 syms_15; SGroup 8804 14 syms_17]);
   (135081, 21, [AGroup 5 1 [sym_ppDirective]; AGroup 15761 1 [anon_sym_LBRACK];
     AGroup 15763 1 [anon_sym_LPAREN]; AGroup 15767 1 [anon_sym_POUND];
     AGroup 15781 1 [sym_kSpecialize]; AGroup 15785 1 [sym_kIf]; AGroup 15787 1 [sym_kInherited];
     AGroup 17864 1 [sym_kString]; SGroup 4102 1 [aux_sym_with_repeat1]; AGroup 3 2 syms_5;
     AGroup 15765 2 syms_6; AGroup 15769 2 syms_7; AGroup 15771 2 syms_8; AGroup 15773 2 syms_9;
     AGroup 15775 2 syms_10; AGroup 15783 2 syms_11; SGroup 9180 2 syms_12;
     SGroup 7467 3 syms_13; SGroup 9670 4 syms_14; AGroup 15777 5 syms_15; SGroup 8804 14 syms_17]);
   (135175, 21, [AGroup 5 1 [sym_ppDirective]; AGroup 15761 1 [anon_sym_LBRACK];
     AGroup 15763 1 [anon_sym_LPAREN]; AGroup 15767 1 [anon_sym_POUND];
     AGroup 15781 1 [sym_kSpecialize]; AGroup 15785 1 [sym_kIf]; AGroup 15787 1 [sym_kInherited];
     AGroup 17864 1 [sym_kString]; SGroup 4187 1 [aux_sym_with_repeat1]; AGroup 3 2 syms_5;
     AGroup 15765 2 syms_6; AGroup 15769 2 syms_7; AGroup 15771 2 syms_8; AGroup 15773 2 syms_9;
     AGroup 15775 2 syms_10; AGroup 15783 2 syms_11; SGroup 9180 2 syms_12;
     SGroup 7467 3 syms_13; SGroup 9739 4 syms_14; AGroup 15777 5 syms_15; SGroup 8804 14 syms_17]);
   (135269, 21, [AGroup 5 1 [sym_ppDirective]; AGroup 15761 1 [anon_sym_LBRACK];
     AGroup 15763 1 [anon_sym_LPAREN]; AGroup 15767 1 [anon_sym_POUND];
     AGroup 15781 1 [sym_kSpecialize]; AGroup 15785 1 [sym_kIf]; AGroup 15787 1 [sym_kInherited];
     AGroup 17864 1 [sym_kString]; SGroup 4102 1 [aux_sym_with_repeat1]; AGroup 3 2 syms_5;
     AGroup 15765 2 syms_6; AGroup 15769 2 syms_7; AGroup 15771 2 syms_8; AGroup 15773 2 syms_9;
     AGroup 15775 2 syms_10; AGroup 15783 2 syms_11; SGroup 9180 2 syms_12;
     SGroup 7467 3 syms_13; SGroup 9782 4 syms_14; AGroup 15777 5 syms_15; SGroup 8804 14 syms_17]);
   (135363, 21, [AGroup 5 1 [sym_ppDirective]; AGroup 15761 1 [anon_sym_LBRACK];
     AGroup 15763 1 [anon_sym_LPAREN]; AGroup 15767 1 [anon_sym_POUND];
     AGroup 15781 1 [sym_kSpecialize]; AGroup 15785 1 [sym_kIf]; AGroup 15787 1 [sym_kInherited];
     AGroup 17864 1 [sym_kString]; SGroup 4189 1 [aux_sym_with_repeat1]; AGroup 3 2 syms_5;
     AGroup 15765 2 syms_6; AGroup 15769 2 syms_7; AGroup 15771 2 syms_8; AGroup 15773 2 syms_9;
     AGroup 15775 2 syms_10; AGroup 15783 2 syms_11; SGroup 9180 2 syms_12;
     SGroup 7467 3 syms_13; SGroup 9719 4 syms_14; AGroup 15777 5 syms_15; SGroup 8804 14 syms_17]);
   (135457, 21, [AGroup 5 1 [sym_ppDirective]; AGroup 15761 1 [anon_sym_LBRACK];
     AGroup 15763 1 [anon_sym_LPAREN]; AGroup 15767 1 [anon_sym_POUND];
     AGroup 15781 1 [sym_kSpecialize]; AGroup 15785 1 [sym_kIf]; AGroup 15787 1 [sym_kInherited];
     AGroup 17864 1 [sym_kString]; SGroup 4102 1 [aux_sym_with_repeat1]; AGroup 3 2 syms_5;
     AGroup 15765 2 syms_6; AGroup 15769 2 syms_7; AGroup 15771 2 syms_8; AGroup 15773 2 syms_9;
     AGroup 15775 2 syms_10; AGroup 15783 2 syms_11; SGroup 9180 2 syms_12;
     SGroup 7467 3 syms_13; SGroup 9811 4 syms_14; AGroup 15777 5 syms_15; SGroup 8804 14 syms_17]);
   (135551, 21, [AGroup 5 1 [sym_ppDirective]; AGroup 15761 1 [anon_sym_LBRACK];
     AGroup 15763 1 [anon_sym_LPAREN]; AGroup 15767 1 [anon_sym_POUND];
     AGroup 15781 1 [sym_kSpecialize]; AGroup 15785 1 [sym_kIf]; AGroup 15787 1 [sym_kInherited];
     AGroup 17864 1 [sym_kString]; SGroup 4191 1 [aux_sym_with_repeat1]; AGroup 3 2 syms_5;
     AGroup 15765 2 syms_6; AGroup 15769 2 syms_7; AGroup 15771 2 syms_8; AGroup 15773 2 syms_9;
     AGroup 15775 2 syms_10; AGroup 15783 2 syms_11; SGroup 9180 2 syms_12;
     SGroup 7467 3 syms_13; SGroup 9743 4 syms_14; AGroup 15777 5 syms_15; SGroup 8804 14 syms_17]);
   (135645, 21, [AGroup 5 1 [sym_ppDirective]; AGroup 15761 1 [anon_sym_LBRACK];
     AGroup 15763 1 [anon_sym_LPAREN]; AGroup 15767 1 [anon_sym_POUND];
     AGroup 15781 1 [sym_kSpecialize]; AGroup 15785 1 [sym_kIf]; AGroup 15787 1 [sym_kInherited];
     AGroup 17864 1 [sym_kString]; SGroup 4102 1 [aux_sym_with_repeat1]; AGroup 3 2 syms_5;
     AGroup 15765 2 syms_6; AGroup 15769 2 syms_7; AGroup 15771 2 syms_8; AGroup 15773 2 syms_9;
     AGroup 15775 2 syms_10; AGroup 15783 2 syms_11; SGroup 9180 2 syms_12;
     SGroup 7467 3 syms_13; SGroup 9787 4 syms_14; AGroup 15777 5 syms_15; SGroup 8804 14 syms_17]);
   (135739, 21, [AGroup 5 1 [sym_ppDirective]; AGroup 15761 1 [anon_sym_LBRACK];
     AGroup 15763 1 [anon_sym_LPAREN]; AGroup 15767 1 [anon_sym_POUND];
     AGroup 15781 1 [sym_kSpecialize]; AGroup 15785 1 [sym_kIf]; AGroup 15787 1 [sym_kInherited];
     AGroup 17864 1 [sym_kString]; SGroup 4193 1 [aux_sym_with_repeat1]; AGroup 3 2 syms_5;
     AGroup 15765 2 syms_6; AGroup 15769 2 syms_7; AGroup 15771 2 syms_8; AGroup 15773 2 syms_9;
     AGroup 15775 2 syms_10; AGroup 15783 2 syms_11; SGroup 9180 2 syms_12;
     SGroup 7467 3 syms_13; SGroup 9661 4 syms_14; AGroup 15777 5 syms_15; SGroup 8804 14 syms_17]);
   (135833, 21, [AGroup 5 1 [sym_ppDirective]; AGroup 15761 1 [anon_sym_LBRACK];
     AGroup 15763 1 [anon_sym_LPAREN]; AGroup 15767 1 [anon_sym_POUND];
     AGroup 15781 1 [sym_kSpecialize]; AGroup 15785 1 [sym_kIf]; AGroup 15787 1 [sym_kInherited];
     AGroup 17864 1 [sym_kString]; SGroup 4102 1 [aux_sym_with_repeat1]; AGroup 3 2 syms_5;
     AGroup 15765 2 syms_6; AGroup 15769 2 syms_7; AGroup 15771 2 syms_8; AGroup 15773 2 syms_9;
     AGroup 15775 2 syms_10; AGroup 15783 2 syms_11; SGroup 9180 2 syms_12;
     SGroup 7467 3 syms_13; SGroup 9682 4 syms_14; AGroup 15777 5 syms_15; SGroup 8804 14 syms_17]);
   (135927, 21, [AGroup 5 1 [sym_ppDirective]; AGroup 15761 1 [anon_sym_LBRACK];
     AGroup 15763 1 [anon_sym_LPAREN]; AGroup 15767 1 [anon_sym_POUND];
     AGroup 15781 1 [sym_kSpecialize]; AGroup 15785 1 [sym_kIf]; AGroup 15787 1 [sym_kInherited];
     AGroup 17864 1 [sym_kString]; SGroup 4195 1 [aux_sym_with_repeat1]; AGroup 3 2 syms_5;
     AGroup 15765 2 syms_6; AGroup 15769 2 syms_7; AGroup 15771 2 syms_8; AGroup 15773 2 syms_9;
     AGroup 15775 2 syms_10; AGroup 15783 2 syms_11; SGroup 9180 2 syms_12;
     SGroup 7467 3 syms_13; SGroup 9767 4 syms_14; AGroup 15777 5 syms_15; SGroup 8804 14 syms_17]);
   (136021, 21, [AGroup 5 1 [sym_ppDirective]; AGroup 15761 1 [anon_sym_LBRACK];
     AGroup 15763 1 [anon_sym_LPAREN]; AGroup 15767 1 [anon_sym_POUND];
     AGroup 15781 1 [sym_kSpecialize]; AGroup 15785 1 [sym_kIf]; AGroup 15787 1 [sym_kInherited];
     AGroup 17864 1 [sym_kString]; SGroup 4102 1 [aux_sym_with_repeat1]; AGroup 3 2 syms_5;
     AGroup 15765 2 syms_6; AGroup 15769 2 syms_7; AGroup 15771 2 syms_8; AGroup 15773 2 syms_9;
     AGroup 15775 2 syms_10; AGroup 15783 2 syms_11; SGroup 9180 2 syms_12;
     SGroup 7467 3 syms_13; SGroup 9806 4 syms_14; AGroup 15777 5 syms_15; SGroup 8804 14 syms_17]);
   (136115, 21, [AGroup 5 1 [sym_ppDirective]; AGroup 15761 1 [anon_sym_LBRACK];
     AGroup 15763 1 [anon_sym_LPAREN]; AGroup 15767 1 [anon_sym_POUND];
     AGroup 15781 1 [sym_kSpecialize]; AGroup 15785 1 [sym_kIf]; AGroup 15787 1 [sym_kInherited];
     AGroup 17864 1 [sym_kString]; SGroup 4197 1 [aux_sym_with_repeat1]; AGroup 3 2 syms_5;
     AGroup 15765 2 syms_6; AGroup 15769 2 syms_7; AGroup 15771 2 syms_8; AGroup 15773 2 syms_9;
     AGroup 15775 2 syms_10; AGroup 15783 2 syms_11; SGroup 9180 2 syms_12;
     SGroup 7467 3 syms_13; SGroup 9630 4 syms_14; AGroup 15777 5 syms_15; SGroup 8804 14 syms_17]);
   (136209, 21, [AGroup 5 1 [sym_ppDirective]; AGroup 15761 1 [anon_sym_LBRACK];
     AGroup 15763 1 [anon_sym_LPAREN]; AGroup 15767 1 [anon_sym_POUND];
     AGroup 15781 1 [sym_kSpecialize]; AGroup 15785 1 [sym_kIf]; AGroup 15787 1 [sym_kInherited];
     AGroup 17864 1 [sym_kString]; SGroup 4102 1 [aux_sym_with_repeat1]; AGroup 3 2 syms_5;
     AGroup 15765 2 syms_6; AGroup 15769 2 syms_7; AGroup 15771 2 syms_8; AGroup 15773 2 syms_9;
     AGroup 15775 2 syms_10; AGroup 15783 2 syms_11; SGroup 9180 2 syms_12;
     SGroup 7467 3 syms_13; SGroup 9641 4 syms_14; AGroup 15777 5 syms_15; SGroup 8804 14 syms_17]);
   (136303, 21, [AGroup 5 1 [sym_ppDirective]; AGroup 15761 1 [anon_sym_LBRACK];
     AGroup 15763 1 [anon_sym_LPAREN]; AGroup 15767 1 [anon_sym_POUND];
     AGroup 15781 1 [sym_kSpecialize]; AGroup 15785 1 [sym_kIf]; AGroup 15787 1 [sym_kInherited];
     AGroup 17864 1 [sym_kString]; SGroup 4127 1 [aux_sym_with_repeat1]; AGroup 3 2 syms_5;
     AGroup 15765 2 syms_6; AGroup 15769 2 syms_7; AGroup 15771 2 syms_8; AGroup 15773 2 syms_9;
     AGroup 15775 2 syms_10; AGroup 15783 2 syms_11; SGroup 9180 2 syms_12;
     SGroup 7467 3 syms_13; SGroup 9667 4 syms_14; AGroup 15777 5 syms_15; SGroup 8804 14 syms_17]);
   (136397, 4, [AGroup 5 1 [sym_ppDirective]; AGroup 3 2 syms_5; AGroup 15295 4 syms_25;
     AGroup 15293 44 syms_142]);
   (136457, 20, [AGroup 5 1 [sym_ppDirective]; AGroup 15647 1 [anon_sym_LBRACK];
     AGroup 15653 1 [anon_sym_POUND]; AGroup 15667 1 [sym_kSpecialize]; AGroup 15671 1 [sym_kIf];
     AGroup 15673 1 [sym_kInherited]; AGroup 15675 1 [sym_kString];
     AGroup 15745 1 [anon_sym_LPAREN]; AGroup 3 2 syms_5; AGroup 15651 2 syms_6;
     AGroup 15655 2 syms_7; AGroup 15657 2 syms_8; AGroup 15659 2 syms_9; AGroup 15661 2 syms_10;
     AGroup 15669 2 syms_11; SGroup 8129 2 syms_12; SGroup 7100 3 syms_13; SGroup 9689 4 syms_14;
     AGroup 15663 5 syms_15; SGroup 7786 14 syms_17]);
   (136548, 20, [AGroup 5 1 [sym_ppDirective]; AGroup 16337 1 [anon_sym_LBRACK];
     AGroup 16339 1 [anon_sym_LPAREN]; AGroup 16343 1 [anon_sym_POUND];
     AGroup 16357 1 [sym_kSpecialize]; AGroup 16361 1 [sym_kIf]; AGroup 16363 1 [sym_kInherited];
     AGroup 17202 1 [sym_kString]; AGroup 3 2 syms_5; AGroup 16341 2 syms_6;
     AGroup 16345 2 syms_7; AGroup 16347 2 syms_8; AGroup 16349 2 syms_9; AGroup 16351 2 syms_10;
     AGroup 16359 2 syms_11; SGroup 7828 2 syms_12; SGroup 7011 3 syms_13; SGroup 7567 4 syms_14;
     AGroup 16353 5 syms_15; SGroup 7566 14 syms_17]);
   (136639, 20, [AGroup 5 1 [sym_ppDirective]; AGroup 16337 1 [anon_sym_LBRACK];
     AGroup 16339 1 [anon_sym_LPAREN]; AGroup 16343 1 [anon_sym_POUND];
     AGroup 16357 1 [sym_kSpecialize]; AGroup 16361 1 [sym_kIf]; AGroup 16363 1 [sym_kInherited];
     AGroup 17202 1 [sym_kString]; AGroup 3 2 syms_5; AGroup 16341 2 syms_6;
     AGroup 16345 2 syms_7; AGroup 16347 2 syms_8; AGroup 16349 2 syms_9; AGroup 16351 2 syms_10;
     AGroup 16359 2 syms_11; SGroup 7828 2 syms_12; SGroup 7011 3 syms_13; SGroup 7568 4 syms_14;
     AGroup 16353 5 syms_15; SGroup 7566 14 syms_17]);
   (136730, 20, [AGroup 5 1 [sym_ppDirective]; AGroup 16337 1 [anon_sym_LBRACK];
     AGroup 16339 1 [anon_sym_LPAREN]; AGroup 16343 1 [anon_sym_POUND];
     AGroup 16357 1 [sym_kSpecialize]; AGroup 16361 1 [sym_kIf]; AGroup 16363 1 [sym_kInherited];
     AGroup 17202 1 [sym_kString]; AGroup 3 2 syms_5; AGroup 16341 2 syms_6;
     AGroup 16345 2 syms_7; AGroup 16347 2 syms_8; AGroup 16349 2 syms_9; AGroup 16351 2 syms_10;
     AGroup 16359 2 syms_11; SGroup 7828 2 syms_12; SGroup 7011 3 syms_13; SGroup 7569 4 syms_14;
     AGroup 16353 5 syms_15; SGroup 7566 14 syms_17]);
   (136821, 21, [AGroup 5 1 [sym_ppDirective]; AGroup 16337 1 [anon_sym_LBRACK];
     AGroup 16339 1 [anon_sym_LPAREN]; AGroup 16343 1 [anon_sym_POUND]; AGroup 16351 1 [sym_kAt];
     AGroup 16357 1 [sym_kSpecialize]; AGroup 16361 1 [sym_kIf]; AGroup 16363 1 [sym_kInherited];
     AGroup 17202 1 [sym_kString]; AGroup 18125 1 [sym_kNot]; AGroup 3 2 syms_5;
     AGroup 16341 2 syms_6; AGroup 16345 2 syms_7; AGroup 16347 2 syms_8; AGroup 16349 2 syms_9;
     AGroup 16359 2 syms_11; SGroup 7828 2 syms_12; SGroup 7011 3 syms_13; SGroup 7569 4 syms_14;
     AGroup 16353 5 syms_15; SGroup 7566 14 syms_17]);
   (136914, 20, [AGroup 5 1 [sym_ppDirective]; AGroup 16337 1 [anon_sym_LBRACK];
     AGroup 16339 1 [anon_sym_LPAREN]; AGroup 16343 1 [anon_sym_POUND];
     AGroup 16357 1 [sym_kSpecialize]; AGroup 16361 1 [sym_kIf]; AGroup 16363 1 [sym_kInherited];
     AGroup 17202 1 [sym_kString]; AGroup 3 2 syms_5; AGroup 16341 2 syms_6;
     AGroup 16345 2 syms_7; AGroup 16347 2 syms_8; AGroup 16349 2 syms_9; AGroup 16351 2 syms_10;
     AGroup 16359 2 syms_11; SGroup 7828 2 syms_12; SGroup 7011 3 syms_13; SGroup 7571 4 syms_14;
     AGroup 16353 5 syms_15; SGroup 7566 14 syms_17]);
   (137005, 20, [AGroup 5 1 [sym_ppDirective]; AGroup 16021 1 [anon_sym_LBRACK];
     AGroup 16023 1 [anon_sym_LPAREN]; AGroup 16027 1 [anon_sym_POUND];
     AGroup 16041 1 [sym_kSpecialize]; AGroup 16045 1 [sym_kIf]; AGroup 16047 1 [sym_kInherited];
     AGroup 17344 1 [sym_kString]; AGroup 3 2 syms_5; AGroup 16025 2 syms_6;
     AGroup 16029 2 syms_7; AGroup 16031 2 syms_8; AGroup 16033 2 syms_9; AGroup 16035 2 syms_10;
     AGroup 16043 2 syms_11; SGroup 9151 2 syms_12; SGroup 7393 3 syms_13; SGroup 8740 4 syms_14;
     AGroup 16037 5 syms_15; SGroup 8705 14 syms_17]);
   (137096, 20, [AGroup 5 1 [sym_ppDirective]; AGroup 15755 1 [sym_kIf]; AGroup 16337 1 [anon_sym_LBRACK];
     AGroup 16339 1 [anon_sym_LPAREN]; AGroup 16343 1 [anon_sym_POUND];
     AGroup 16357 1 [sym_kSpecialize]; AGroup 16363 1 [sym_kInherited];
     AGroup 17202 1 [sym_kString]; AGroup 3 2 syms_5; AGroup 15747 2 syms_9;
     AGroup 15749 2 syms_10; AGroup 16341 2 syms_6; AGroup 16345 2 syms_7; AGroup 16347 2 syms_8;
     AGroup 16359 2 syms_11; SGroup 7828 2 syms_12; SGroup 7011 3 syms_13;
     SGroup 10303 4 syms_14; AGroup 18127 5 syms_15; SGroup 7572 14 syms_17]);
   (137187, 20, [AGroup 5 1 [sym_ppDirective]; AGroup 16337 1 [anon_sym_LBRACK];
     AGroup 16339 1 [anon_sym_LPAREN]; AGroup 16343 1 [anon_sym_POUND];
     AGroup 16357 1 [sym_kSpecialize]; AGroup 16361 1 [sym_kIf]; AGroup 16363 1 [sym_kInherited];
     AGroup 17202 1 [sym_kString]; AGroup 3 2 syms_5; AGroup 16341 2 syms_6;
     AGroup 16345 2 syms_7; AGroup 16347 2 syms_8; AGroup 16349 2 syms_9; AGroup 16351 2 syms_10;
     AGroup 16359 2 syms_11; SGroup 7828 2 syms_12; SGroup 7011 3 syms_13; SGroup 7573 4 syms_14;
     AGroup 16353 5 syms_15; SGroup 7566 14 syms_17]);
   (137278, 20, [AGroup 5 1 [sym_ppDirective]; AGroup 15761 1 [anon_sym_LBRACK];
     AGroup 15763 1 [anon_sym_LPAREN]; AGroup 15767 1 [anon_sym_POUND];
     AGroup 15781 1 [sym_kSpecialize]; AGroup 15787 1 [sym_kInherited]; AGroup 16229 1 [sym_kIf];
     AGroup 17864 1 [sym_kString]; AGroup 3 2 syms_5; AGroup 15765 2 syms_6;
     AGroup 15769 2 syms_7; AGroup 15771 2 syms_8; AGroup 15783 2 syms_11; AGroup 16221 2 syms_9;
     AGroup 16223 2 syms_10; SGroup 9180 2 syms_12; SGroup 7467 3 syms_13; SGroup 9190 4 syms_14;
     AGroup 16225 5 syms_15; SGroup 9076 14 syms_17]);
   (137369, 20, [AGroup 5 1 [sym_ppDirective]; AGroup 16337 1 [anon_sym_LBRACK];
     AGroup 16339 1 [anon_sym_LPAREN]; AGroup 16343 1 [anon_sym_POUND];
     AGroup 16357 1 [sym_kSpecialize]; AGroup 16361 1 [sym_kIf]; AGroup 16363 1 [sym_kInherited];
     AGroup 17202 1 [sym_kString]; AGroup 3 2 syms_5; AGroup 16341 2 syms_6;
     AGroup 16345 2 syms_7; AGroup 16347 2 syms_8; AGroup 16349 2 syms_9; AGroup 16351 2 syms_10;
     AGroup 16359 2 syms_11; SGroup 7828 2 syms_12; SGroup 7011 3 syms_13; SGroup 7574 4 syms_14;
     AGroup 16353 5 syms_15; SGroup 7566 14 syms_17]);
   (137460, 20, [AGroup 5 1 [sym_ppDirective]; AGroup 15959 1 [anon_sym_LBRACK];
     AGroup 15961 1 [anon_sym_LPAREN]; AGroup 15965 1 [anon_sym_POUND];
     AGroup 15977 1 [sym_kSpecialize]; AGroup 15981 1 [sym_kIf]; AGroup 15983 1 [sym_kInherited];
     AGroup 15985 1 [sym_kString]; AGroup 3 2 syms_5; AGroup 15963 2 syms_6;
     AGroup 15967 2 syms_7; AGroup 15969 2 syms_8; AGroup 15971 2 syms_9; AGroup 15973 2 syms_10;
     AGroup 15979 2 syms_11; SGroup 7734 2 syms_12; SGroup 6950 3 syms_13; SGroup 7390 4 syms_14;
     AGroup 15975 5 syms_15; SGroup 7373 14 syms_17]);
   (137551, 20, [AGroup 5 1 [sym_ppDirective]; AGroup 15441 1 [anon_sym_LBRACK];
     AGroup 15443 1 [anon_sym_LPAREN]; AGroup 15447 1 [anon_sym_POUND];
     AGroup 15459 1 [sym_kSpecialize]; AGroup 15463 1 [sym_kIf]; AGroup 15465 1 [sym_kInherited];
     AGroup 15467 1 [sym_kString]; AGroup 3 2 syms_5; AGroup 15445 2 syms_6;
     AGroup 15449 2 syms_7; AGroup 15451 2 syms_8; AGroup 15453 2 syms_9; AGroup 15455 2 syms_10;
     AGroup 15461 2 syms_11; SGroup 7612 2 syms_12; SGroup 6946 3 syms_13; SGroup 7405 4 syms_14;
     AGroup 15457 5 syms_15; SGroup 7425 14 syms_17]);
   (137642, 20, [AGroup 5 1 [sym_ppDirective]; AGroup 16071 1 [anon_sym_LBRACK];
     AGroup 16073 1 [anon_sym_LPAREN]; AGroup 16077 1 [anon_sym_POUND];
     AGroup 16091 1 [sym_kSpecialize]; AGroup 16095 1 [sym_kIf]; AGroup 16097 1 [sym_kInherited];
     AGroup 17710 1 [sym_kString]; AGroup 3 2 syms_5; AGroup 16075 2 syms_6;
     AGroup 16079 2 syms_7; AGroup 16081 2 syms_8; AGroup 16083 2 syms_9; AGroup 16085 2 syms_10;
     AGroup 16093 2 syms_11; SGroup 8930 2 syms_12; SGroup 7257 3 syms_13; SGroup 8458 4 syms_14;
     AGroup 16087 5 syms_15; SGroup 8310 14 syms_17]);
   (137733, 20, [AGroup 5 1 [sym_ppDirective]; AGroup 15441 1 [anon_sym_LBRACK];
     AGroup 15443 1 [anon_sym_LPAREN]; AGroup 15447 1 [anon_sym_POUND];
     AGroup 15459 1 [sym_kSpecialize]; AGroup 15463 1 [sym_kIf]; AGroup 15465 1 [sym_kInherited];
     AGroup 15467 1 [sym_kString]; AGroup 3 2 syms_5; AGroup 15445 2 syms_6;
     AGroup 15449 2 syms_7; AGroup 15451 2 syms_8; AGroup 15453 2 syms_9; AGroup 15455 2 syms_10;
     AGroup 15461 2 syms_11; SGroup 7612 2 syms_12; SGroup 6946 3 syms_13; SGroup 7442 4 syms_14;
     AGroup 15457 5 syms_15; SGroup 7425 14 syms_17]);
   (137824, 20, [AGroup 5 1 [sym_ppDirective]; AGroup 15441 1 [anon_sym_LBRACK];
     AGroup 15443 1 [anon_sym_LPAREN]; AGroup 15447 1 [anon_sym_POUND];
     AGroup 15459 1 [sym_kSpecialize]; AGroup 15463 1 [sym_kIf]; AGroup 15465 1 [sym_kInherited];
     AGroup 15467 1 [sym_kString]; AGroup 3 2 syms_5; AGroup 15445 2 syms_6;
     AGroup 15449 2 syms_7; AGroup 15451 2 syms_8; AGroup 15453 2 syms_9; AGroup 15455 2 syms_10;
     AGroup 15461 2 syms_11; SGroup 7612 2 syms_12; SGroup 6946 3 syms_13; SGroup 7443 4 syms_14;
     AGroup 15457 5 syms_15; SGroup 7425 14 syms_17]);
   (137915, 20, [AGroup 5 1 [sym_ppDirective]; AGroup 15441 1 [anon_sym_LBRACK];
     AGroup 15443 1 [anon_sym_LPAREN]; AGroup 15447 1 [anon_sym_POUND];
     AGroup 15459 1 [sym_kSpecialize]; AGroup 15463 1 [sym_kIf]; AGroup 15465 1 [sym_kInherited];
     AGroup 15467 1 [sym_kString]; AGroup 3 2 syms_5; AGroup 15445 2 syms_6;
     AGroup 15449 2 syms_7; AGroup 15451 2 syms_8; AGroup 15453 2 syms_9; AGroup 15455 2 syms_10;
     AGroup 15461 2 syms_11; SGroup 7612 2 syms_12; SGroup 6946 3 syms_13; SGroup 7444 4 syms_14;
     AGroup 15457 5 syms_15; SGroup 7425 14 syms_17]);
   (138006, 21, [AGroup 5 1 [sym_ppDirective]; AGroup 15441 1 [anon_sym_LBRACK];
     AGroup 15443 1 [anon_sym_LPAREN]; AGroup 15447 1 [anon_sym_POUND]; AGroup 15455 1 [sym_kAt];
     AGroup 15459 1 [sym_kSpecialize]; AGroup 15463 1 [sym_kIf]; AGroup 15465 1 [sym_kInherited];
     AGroup 15467 1 [sym_kString]; AGroup 18129 1 [sym_kNot]; AGroup 3 2 syms_5;
     AGroup 15445 2 syms_6; AGroup 15449 2 syms_7; AGroup 15451 2 syms_8; AGroup 15453 2 syms_9;
     AGroup 15461 2 syms_11; SGroup 7612 2 syms_12; SGroup 6946 3 syms_13; SGroup 7444 4 syms_14;
     AGroup 15457 5 syms_15; SGroup 7425 14 syms_17]);
   (138099, 20, [AGroup 5 1 [sym_ppDirective]; AGroup 15441 1 [anon_sym_LBRACK];
     AGroup 15443 1 [anon_sym_LPAREN]; AGroup 15447 1 [anon_sym_POUND];
     AGroup 15459 1 [sym_kSpecialize]; AGroup 15463 1 [sym_kIf]; AGroup 15465 1 [sym_kInherited];
     AGroup 15467 1 [sym_kString]; AGroup 3 2 syms_5; AGroup 15445 2 syms_6;
     AGroup 15449 2 syms_7; AGroup 15451 2 syms_8; AGroup 15453 2 syms_9; AGroup 15455 2 syms_10;
     AGroup 15461 2 syms_11; SGroup 7612 2 syms_12; SGroup 6946 3 syms_13; SGroup 7446 4 syms_14;
     AGroup 15457 5 syms_15; SGroup 7425 14 syms_17]);
   (138190, 20, [AGroup 5 1 [sym_ppDirective]; AGroup 15441 1 [anon_sym_LBRACK];
     AGroup 15443 1 [anon_sym_LPAREN]; AGroup 15447 1 [anon_sym_POUND];
     AGroup 15459 1 [sym_kSpecialize]; AGroup 15465 1 [sym_kInherited];
     AGroup 15467 1 [sym_kString]; AGroup 15755 1 [sym_kIf]; AGroup 3 2 syms_5;
     AGroup 15445 2 syms_6; AGroup 15449 2 syms_7; AGroup 15451 2 syms_8; AGroup 15461 2 syms_11;
     AGroup 15747 2 syms_9; AGroup 15749 2 syms_10; SGroup 7612 2 syms_12; SGroup 6946 3 syms_13;
     SGroup 10330 4 syms_14; AGroup 18131 5 syms_15; SGroup 7447 14 syms_17]);
   (138281, 20, [AGroup 5 1 [sym_ppDirective]; AGroup 15441 1 [anon_sym_LBRACK];
     AGroup 15443 1 [anon_sym_LPAREN]; AGroup 15447 1 [anon_sym_POUND];
     AGroup 15459 1 [sym_kSpecialize]; AGroup 15463 1 [sym_kIf]; AGroup 15465 1 [sym_kInherited];
     AGroup 15467 1 [sym_kString]; AGroup 3 2 syms_5; AGroup 15445 2 syms_6;
     AGroup 15449 2 syms_7; AGroup 15451 2 syms_8; AGroup 15453 2 syms_9; AGroup 15455 2 syms_10;
     AGroup 15461 2 syms_11; SGroup 7612 2 syms_12; SGroup 6946 3 syms_13; SGroup 7453 4 syms_14;
     AGroup 15457 5 syms_15; SGroup 7425 14 syms_17]);
   (138372, 20, [AGroup 5 1 [sym_ppDirective]; AGroup 15761 1 [anon_sym_LBRACK];
     AGroup 15763 1 [anon_sym_LPAREN]; AGroup 15767 1 [anon_sym_POUND];
     AGroup 15781 1 [sym_kSpecialize]; AGroup 15787 1 [sym_kInherited]; AGroup 16229 1 [sym_kIf];
     AGroup 17864 1 [sym_kString]; AGroup 3 2 syms_5; AGroup 15765 2 syms_6;
     AGroup 15769 2 syms_7; AGroup 15771 2 syms_8; AGroup 15783 2 syms_11; AGroup 16221 2 syms_9;
     AGroup 16223 2 syms_10; SGroup 9180 2 syms_12; SGroup 7467 3 syms_13; SGroup 9228 4 syms_14;
     AGroup 16225 5 syms_15; SGroup 9076 14 syms_17]);
   (138463, 20, [AGroup 5 1 [sym_ppDirective]; AGroup 15761 1 [anon_sym_LBRACK];
     AGroup 15763 1 [anon_sym_LPAREN]; AGroup 15767 1 [anon_sym_POUND];
     AGroup 15781 1 [sym_kSpecialize]; AGroup 15787 1 [sym_kInherited]; AGroup 16229 1 [sym_kIf];
     AGroup 17864 1 [sym_kString]; AGroup 3 2 syms_5; AGroup 15765 2 syms_6;
     AGroup 15769 2 syms_7; AGroup 15771 2 syms_8; AGroup 15783 2 syms_11; AGroup 16221 2 syms_9;
     AGroup 16223 2 syms_10; SGroup 9180 2 syms_12; SGroup 7467 3 syms_13; SGroup 9233 4 syms_14;
     AGroup 16225 5 syms_15; SGroup 9076 14 syms_17]);
   (138554, 20, [AGroup 5 1 [sym_ppDirective]; AGroup 15761 1 [anon_sym_LBRACK];
     AGroup 15763 1 [anon_sym_LPAREN]; AGroup 15767 1 [anon_sym_POUND];
     AGroup 15781 1 [sym_kSpecialize]; AGroup 15787 1 [sym_kInherited]; AGroup 16229 1 [sym_kIf];
     AGroup 17864 1 [sym_kString]; AGroup 3 2 syms_5; AGroup 15765 2 syms_6;
     AGroup 15769 2 syms_7; AGroup 15771 2 syms_8; AGroup 15783 2 syms_11; AGroup 16221 2 syms_9;
     AGroup 16223 2 syms_10; SGroup 9180 2 syms_12; SGroup 7467 3 syms_13; SGroup 9237 4 syms_14;
     AGroup 16225 5 syms_15; SGroup 9076 14 syms_17]);
   (138645, 20, [AGroup 5 1 [sym_ppDirective]; AGroup 15441 1 [anon_sym_LBRACK];
     AGroup 15443 1 [anon_sym_LPAREN]; AGroup 15447 1 [anon_sym_POUND];
     AGroup 15459 1 [sym_kSpecialize]; AGroup 15463 1 [sym_kIf]; AGroup 15465 1 [sym_kInherited];
     AGroup 15467 1 [sym_kString]; AGroup 3 2 syms_5; AGroup 15445 2 syms_6;
     AGroup 15449 2 syms_7; AGroup 15451 2 syms_8; AGroup 15453 2 syms_9; AGroup 15455 2 syms_10;
     AGroup 15461 2 syms_11; SGroup 7612 2 syms_12; SGroup 6946 3 syms_13; SGroup 7465 4 syms_14;
     AGroup 15457 5 syms_15; SGroup 7425 14 syms_17]);
   (138736, 21, [AGroup 5 1 [sym_ppDirective]; AGroup 15761 1 [anon_sym_LBRACK];
     AGroup 15763 1 [anon_sym_LPAREN]; AGroup 15767 1 [anon_sym_POUND];
     AGroup 15781 1 [sym_kSpecialize]; AGroup 15787 1 [sym_kInherited]; AGroup 16223 1 [sym_kAt];
     AGroup 16229 1 [sym_kIf]; AGroup 17864 1 [sym_kString]; AGroup 18133 1 [sym_kNot];
     AGroup 3 2 syms_5; AGroup 15765 2 syms_6; AGroup 15769 2 syms_7; AGroup 15771 2 syms_8;
     AGroup 15783 2 syms_11; AGroup 16221 2 syms_9; SGroup 9180 2 syms_12; SGroup 7467 3 syms_13;
     SGroup 9237 4 syms_14; AGroup 16225 5 syms_15; SGroup 9076 14 syms_17]);
   (138829, 20, [AGroup 5 1 [sym_ppDirective]; AGroup 15761 1 [anon_sym_LBRACK];
     AGroup 15763 1 [anon_sym_LPAREN]; AGroup 15767 1 [anon_sym_POUND];
     AGroup 15781 1 [sym_kSpecialize]; AGroup 15787 1 [sym_kInherited]; AGroup 16229 1 [sym_kIf];
     AGroup 17864 1 [sym_kString]; AGroup 3 2 syms_5; AGroup 15765 2 syms_6;
     AGroup 15769 2 syms_7; AGroup 15771 2 syms_8; AGroup 15783 2 syms_11; AGroup 16221 2 syms_9;
     AGroup 16223 2 syms_10; SGroup 9180 2 syms_12; SGroup 7467 3 syms_13; SGroup 9242 4 syms_14;
     AGroup 16225 5 syms_15; SGroup 9076 14 syms_17]);
   (138920, 20, [AGroup 5 1 [sym_ppDirective]; AGroup 16375 1 [anon_sym_LBRACK];
     AGroup 16377 1 [anon_sym_LPAREN]; AGroup 16381 1 [anon_sym_POUND];
     AGroup 16395 1 [sym_kSpecialize]; AGroup 16399 1 [sym_kIf]; AGroup 16401 1 [sym_kInherited];
     AGroup 17434 1 [sym_kString]; AGroup 3 2 syms_5; AGroup 16379 2 syms_6;
     AGroup 16383 2 syms_7; AGroup 16385 2 syms_8; AGroup 16387 2 syms_9; AGroup 16389 2 syms_10;
     AGroup 16397 2 syms_11; SGroup 8530 2 syms_12; SGroup 7169 3 syms_13; SGroup 8018 4 syms_14;
     AGroup 16391 5 syms_15; SGroup 8170 14 syms_17]);
   (139011, 5, [AGroup 5 1 [sym_ppDirective]; AGroup 3 2 syms_5; AGroup 15473 4 syms_25;
     AGroup 15403 18 syms_36; AGroup 15471 25 syms_143]);
   (139072, 20, [AGroup 5 1 [sym_ppDirective]; AGroup 15831 1 [anon_sym_LBRACK];
     AGroup 15833 1 [anon_sym_LPAREN]; AGroup 15837 1 [anon_sym_POUND];
     AGroup 15851 1 [sym_kSpecialize]; AGroup 15855 1 [sym_kIf]; AGroup 15857 1 [sym_kInherited];
     AGroup 17312 1 [sym_kString]; AGroup 3 2 syms_5; AGroup 15835 2 syms_6;
     AGroup 15839 2 syms_7; AGroup 15841 2 syms_8; AGroup 15843 2 syms_9; AGroup 15845 2 syms_10;
     AGroup 15853 2 syms_11; SGroup 9267 2 syms_12; SGroup 7556 3 syms_13;
     SGroup 10049 4 syms_14; AGroup 15847 5 syms_15; SGroup 8649 14 syms_17]);
   (139163, 20, [AGroup 5 1 [sym_ppDirective]; AGroup 16375 1 [anon_sym_LBRACK];
     AGroup 16377 1 [anon_sym_LPAREN]; AGroup 16381 1 [anon_sym_POUND];
     AGroup 16395 1 [sym_kSpecialize]; AGroup 16399 1 [sym_kIf]; AGroup 16401 1 [sym_kInherited];
     AGroup 17434 1 [sym_kString]; AGroup 3 2 syms_5; AGroup 16379 2 syms_6;
     AGroup 16383 2 syms_7; AGroup 16385 2 syms_8; AGroup 16387 2 syms_9; AGroup 16389 2 syms_10;
     AGroup 16397 2 syms_11; SGroup 8530 2 syms_12; SGroup 7169 3 syms_13; SGroup 7934 4 syms_14;
     AGroup 16391 5 syms_15; SGroup 8170 14 syms_17]);
   (139254, 20, [AGroup 5 1 [sym_ppDirective]; AGroup 16375 1 [anon_sym_LBRACK];
     AGroup 16377 1 [anon_sym_LPAREN]; AGroup 16381 1 [anon_sym_POUND];
     AGroup 16395 1 [sym_kSpecialize]; AGroup 16399 1 [sym_kIf]; AGroup 16401 1 [sym_kInherited];
     AGroup 17434 1 [sym_kString]; AGroup 3 2 syms_5; AGroup 16379 2 syms_6;
     AGroup 16383 2 syms_7; AGroup 16385 2 syms_8; AGroup 16387 2 syms_9; AGroup 16389 2 syms_10;
     AGroup 16397 2 syms_11; SGroup 8530 2 syms_12; SGroup 7169 3 syms_13; SGroup 7935 4 syms_14;
     AGroup 16391 5 syms_15; SGroup 8170 14 syms_17]);
   (139345, 20, [AGroup 5 1 [sym_ppDirective]; AGroup 16375 1 [anon_sym_LBRACK];
     AGroup 16377 1 [anon_sym_LPAREN]; AGroup 16381 1 [anon_sym_POUND];
     AGroup 16395 1 [sym_kSpecialize]; AGroup 16399 1 [sym_kIf]; AGroup 16401 1 [sym_kInherited];
     AGroup 17434 1 [sym_kString]; AGroup 3 2 syms_5; AGroup 16379 2 syms_6;
     AGroup 16383 2 syms_7; AGroup 16385 2 syms_8; AGroup 16387 2 syms_9; AGroup 16389 2 syms_10;
     AGroup 16397 2 syms_11; SGroup 8530 2 syms_12; SGroup 7169 3 syms_13; SGroup 7936 4 syms_14;
     AGroup 16391 5 syms_15; SGroup 8170 14 syms_17]);
   (139436, 21, [AGroup 5 1 [sym_ppDirective]; AGroup 16375 1 [anon_sym_LBRACK];
     AGroup 16377 1 [anon_sym_LPAREN]; AGroup 16381 1 [anon_sym_POUND]; AGroup 16389 1 [sym_kAt];
     AGroup 16395 1 [sym_kSpecialize]; AGroup 16399 1 [sym_kIf]; AGroup 16401 1 [sym_kInherited];
     AGroup 17434 1 [sym_kString]; AGroup 18135 1 [sym_kNot]; AGroup 3 2 syms_5;
     AGroup 16379 2 syms_6; AGroup 16383 2 syms_7; AGroup 16385 2 syms_8; AGroup 16387 2 syms_9;
     AGroup 16397 2 syms_11; SGroup 8530 2 syms_12; SGroup 7169 3 syms_13; SGroup 7936 4 syms_14;
     AGroup 16391 5 syms_15; SGroup 8170 14 syms_17]);
   (139529, 20, [AGroup 5 1 [sym_ppDirective]; AGroup 16375 1 [anon_sym_LBRACK];
     AGroup 16377 1 [anon_sym_LPAREN]; AGroup 16381 1 [anon_sym_POUND];
     AGroup 16395 1 [sym_kSpecialize]; AGroup 16399 1 [sym_kIf]; AGroup 16401 1 [sym_kInherited];
     AGroup 17434 1 [sym_kString]; AGroup 3 2 syms_5; AGroup 16379 2 syms_6;
     AGroup 16383 2 syms_7; AGroup 16385 2 syms_8; AGroup 16387 2 syms_9; AGroup 16389 2 syms_10;
     AGroup 16397 2 syms_11; SGroup 8530 2 syms_12; SGroup 7169 3 syms_13; SGroup 7937 4 syms_14;
     AGroup 16391 5 syms_15; SGroup 8170 14 syms_17]);
   (139620, 20, [AGroup 5 1 [sym_ppDirective]; AGroup 15755 1 [sym_kIf]; AGroup 15761 1 [anon_sym_LBRACK];
     AGroup 15763 1 [anon_sym_LPAREN]; AGroup 15767 1 [anon_sym_POUND];
     AGroup 15781 1 [sym_kSpecialize]; AGroup 15787 1 [sym_kInherited];
     AGroup 17864 1 [sym_kString]; AGroup 3 2 syms_5; AGroup 15747 2 syms_9;
     AGroup 15749 2 syms_10; AGroup 15765 2 syms_6; AGroup 15769 2 syms_7; AGroup 15771 2 syms_8;
     AGroup 15783 2 syms_11; SGroup 9180 2 syms_12; SGroup 7467 3 syms_13;
     SGroup 10306 4 syms_14; AGroup 18137 5 syms_15; SGroup 9246 14 syms_17]);
   (139711, 20, [AGroup 5 1 [sym_ppDirective]; AGroup 15755 1 [sym_kIf]; AGroup 16375 1 [anon_sym_LBRACK];
     AGroup 16377 1 [anon_sym_LPAREN]; AGroup 16381 1 [anon_sym_POUND];
     AGroup 16395 1 [sym_kSpecialize]; AGroup 16401 1 [sym_kInherited];
     AGroup 17434 1 [sym_kString]; AGroup 3 2 syms_5; AGroup 15747 2 syms_9;
     AGroup 15749 2 syms_10; AGroup 16379 2 syms_6; AGroup 16383 2 syms_7; AGroup 16385 2 syms_8;
     AGroup 16397 2 syms_11; SGroup 8530 2 syms_12; SGroup 7169 3 syms_13;
     SGroup 10255 4 syms_14; AGroup 18139 5 syms_15; SGroup 7939 14 syms_17]);
   (139802, 5, [AGroup 5 1 [sym_ppDirective]; AGroup 3 2 syms_5; AGroup 15504 4 syms_25;
     AGroup 15403 18 syms_36; AGroup 15502 25 syms_143]);
   (139863, 5, [AGroup 5 1 [sym_ppDirective]; AGroup 3 2 syms_5; AGroup 15484 4 syms_25;
     AGroup 15403 18 syms_36; AGroup 15482 25 syms_143]);
   (139924, 20, [AGroup 5 1 [sym_ppDirective]; AGroup 16375 1 [anon_sym_LBRACK];
     AGroup 16377 1 [anon_sym_LPAREN]; AGroup 16381 1 [anon_sym_POUND];
     AGroup 16395 1 [sym_kSpecialize]; AGroup 16399 1 [sym_kIf]; AGroup 16401 1 [sym_kInherited];
     AGroup 17434 1 [sym_kString]; AGroup 3 2 syms_5; AGroup 16379 2 syms_6;
     AGroup 16383 2 syms_7; AGroup 16385 2 syms_8; AGroup 16387 2 syms_9; AGroup 16389 2 syms_10;
     AGroup 16397 2 syms_11; SGroup 8530 2 syms_12; SGroup 7169 3 syms_13; SGroup 7943 4 syms_14;
     AGroup 16391 5 syms_15; SGroup 8170 14 syms_17]);
   (140015, 5, [AGroup 5 1 [sym_ppDirective]; AGroup 3 2 syms_5; AGroup 15492 4 syms_25;
     AGroup 15403 18 syms_36; AGroup 15490 25 syms_143]);
   (140076, 5, [AGroup 5 1 [sym_ppDirective]; AGroup 3 2 syms_5; AGroup 15401 4 syms_25;
     AGroup 15403 18 syms_36; AGroup 15399 25 syms_143]);
   (140137, 5, [AGroup 5 1 [sym_ppDirective]; AGroup 3 2 syms_5; AGroup 15439 4 syms_25;
     AGroup 15403 18 syms_36; AGroup 15437 25 syms_143]);
   (140198, 5, [AGroup 5 1 [sym_ppDirective]; AGroup 3 2 syms_5; AGroup 15488 4 syms_25;
     AGroup 15403 18 syms_36; AGroup 15486 25 syms_143]);
   (140259, 20, [AGroup 5 1 [sym_ppDirective]; AGroup 16375 1 [anon_sym_LBRACK];
     AGroup 16377 1 [anon_sym_LPAREN]; AGroup 16381 1 [anon_sym_POUND];
     AGroup 16395 1 [sym_kSpecialize]; AGroup 16399 1 [sym_kIf]; AGroup 16401 1 [sym_kInherited];
     AGroup 17434 1 [sym_kString]; AGroup 3 2 syms_5; AGroup 16379 2 syms_6;
     AGroup 16383 2 syms_7; AGroup 16385 2 syms_8; AGroup 16387 2 syms_9; AGroup 16389 2 syms_10;
     AGroup 16397 2 syms_11; SGroup 8530 2 syms_12; SGroup 7169 3 syms_13; SGroup 7944 4 syms_14;
     AGroup 16391 5 syms_15; SGroup 8170 14 syms_17]);
   (140350, 5, [AGroup 5 1 [sym_ppDirective]; AGroup 3 2 syms_5; AGroup 15496 4 syms_25;
     AGroup 15403 18 syms_36; AGroup 15494 25 syms_143]);
   (140411, 20, [AGroup 5 1 [sym_ppDirective]; AGroup 16435 1 [anon_sym_LBRACK];
     AGroup 16437 1 [anon_sym_LPAREN]; AGroup 16441 1 [anon_sym_POUND];
     AGroup 16455 1 [sym_kSpecialize]; AGroup 16459 1 [sym_kIf]; AGroup 16461 1 [sym_kInherited];
     AGroup 17540 1 [sym_kString]; AGroup 3 2 syms_5; AGroup 16439 2 syms_6;
     AGroup 16443 2 syms_7; AGroup 16445 2 syms_8; AGroup 16447 2 syms_9; AGroup 16449 2 syms_10;
     AGroup 16457 2 syms_11; SGroup 8859 2 syms_12; SGroup 7280 3 syms_13; SGroup 8598 4 syms_14;
     AGroup 16451 5 syms_15; SGroup 8207 14 syms_17]);
   (140502, 31, [AGroup 5 1 [sym_ppDirective]; AGroup 13347 1 [anon_sym_LBRACK];
     AGroup 13351 1 [aux_sym_ppUsesBlock_token1]; AGroup 13365 1 [sym_identifier];
     AGroup 13367 1 [sym_kGeneric]; AGroup 13369 1 [sym_kOperator]; AGroup 13373 1 [sym_kStrict];
     AGroup 13377 1 [sym_kCase]; AGroup 13379 1 [sym_kClass]; AGroup 13391 1 [sym_kProperty];
     AGroup 13395 1 [sym_kType]; AGroup 18141 1 [anon_sym_SEMI]; AGroup 18143 1 [sym_kEnd];
     SGroup 2 1 [sym__ppIf]; SGroup 6354 1 [sym__visibility]; SGroup 9779 1 [sym_ppBlock];
     SGroup 9835 1 [sym__declOperator]; SGroup 10247 1 [sym__declProc];
     SGroup 10617 1 [sym_rttiAttributes]; SGroup 10730 1 [aux_sym_rttiAttributes_repeat2];
     SGroup 13987 1 [aux_sym_genericArg_repeat1]; SGroup 14434 1 [sym_declVariant];
     SGroup 14829 1 [sym__declClass]; AGroup 3 2 syms_5; AGroup 13381 2 syms_65;
     AGroup 13393 2 syms_66; SGroup 5685 2 syms_68; SGroup 10490 3 syms_69;
     AGroup 13383 4 syms_3; AGroup 13371 6 syms_70; SGroup 6150 6 syms_71]);
   (140615, 20, [AGroup 5 1 [sym_ppDirective]; AGroup 16435 1 [anon_sym_LBRACK];
     AGroup 16437 1 [anon_sym_LPAREN]; AGroup 16441 1 [anon_sym_POUND];
     AGroup 16455 1 [sym_kSpecialize]; AGroup 16459 1 [sym_kIf]; AGroup 16461 1 [sym_kInherited];
     AGroup 17540 1 [sym_kString]; AGroup 3 2 syms_5; AGroup 16439 2 syms_6;
     AGroup 16443 2 syms_7; AGroup 16445 2 syms_8; AGroup 16447 2 syms_9; AGroup 16449 2 syms_10;
     AGroup 16457 2 syms_11; SGroup 8859 2 syms_12; SGroup 7280 3 syms_13; SGroup 8303 4 syms_14;
     AGroup 16451 5 syms_15; SGroup 8207 14 syms_17]);
   (140706, 20, [AGroup 5 1 [sym_ppDirective]; AGroup 16435 1 [anon_sym_LBRACK];
     AGroup 16437 1 [anon_sym_LPAREN]; AGroup 16441 1 [anon_sym_POUND];
     AGroup 16455 1 [sym_kSpecialize]; AGroup 16459 1 [sym_kIf]; AGroup 16461 1 [sym_kInherited];
     AGroup 17540 1 [sym_kString]; AGroup 3 2 syms_5; AGroup 16439 2 syms_6;
     AGroup 16443 2 syms_7; AGroup 16445 2 syms_8; AGroup 16447 2 syms_9; AGroup 16449 2 syms_10;
     AGroup 16457 2 syms_11; SGroup 8859 2 syms_12; SGroup 7280 3 syms_13; SGroup 8308 4 syms_14;
     AGroup 16451 5 syms_15; SGroup 8207 14 syms_17]);
   (140797, 20, [AGroup 5 1 [sym_ppDirective]; AGroup 16435 1 [anon_sym_LBRACK];
     AGroup 16437 1 [anon_sym_LPAREN]; AGroup 16441 1 [anon_sym_POUND];
     AGroup 16455 1 [sym_kSpecialize]; AGroup 16459 1 [sym_kIf]; AGroup 16461 1 [sym_kInherited];
     AGroup 17540 1 [sym_kString]; AGroup 3 2 syms_5; AGroup 16439 2 syms_6;
     AGroup 16443 2 syms_7; AGroup 16445 2 syms_8; AGroup 16447 2 syms_9; AGroup 16449 2 syms_10;
     AGroup 16457 2 syms_11; SGroup 8859 2 syms_12; SGroup 7280 3 syms_13; SGroup 8318 4 syms_14;
     AGroup 16451 5 syms_15; SGroup 8207 14 syms_17]);
   (140888, 21, [AGroup 5 1 [sym_ppDirective]; AGroup 16435 1 [anon_sym_LBRACK];
     AGroup 16437 1 [anon_sym_LPAREN]; AGroup 16441 1 [anon_sym_POUND]; AGroup 16449 1 [sym_kAt];
     AGroup 16455 1 [sym_kSpecialize]; AGroup 16459 1 [sym_kIf]; AGroup 16461 1 [sym_kInherited];
     AGroup 17540 1 [sym_kString]; AGroup 18145 1 [sym_kNot]; AGroup 3 2 syms_5;
     AGroup 16439 2 syms_6; AGroup 16443 2 syms_7; AGroup 16445 2 syms_8; AGroup 16447 2 syms_9;
     AGroup 16457 2 syms_11; SGroup 8859 2 syms_12; SGroup 7280 3 syms_13; SGroup 8318 4 syms_14;
     AGroup 16451 5 syms_15; SGroup 8207 14 syms_17]);
   (140981, 20, [AGroup 5 1 [sym_ppDirective]; AGroup 16435 1 [anon_sym_LBRACK];
     AGroup 16437 1 [anon_sym_LPAREN]; AGroup 16441 1 [anon_sym_POUND];
     AGroup 16455 1 [sym_kSpecialize]; AGroup 16459 1 [sym_kIf]; AGroup 16461 1 [sym_kInherited];
     AGroup 17540 1 [sym_kString]; AGroup 3 2 syms_5; AGroup 16439 2 syms_6;
     AGroup 16443 2 syms_7; AGroup 16445 2 syms_8; AGroup 16447 2 syms_9; AGroup 16449 2 syms_10;
     AGroup 16457 2 syms_11; SGroup 8859 2 syms_12; SGroup 7280 3 syms_13; SGroup 8359 4 syms_14;
     AGroup 16451 5 syms_15; SGroup 8207 14 syms_17]);
   (141072, 20, [AGroup 5 1 [sym_ppDirective]; AGroup 15755 1 [sym_kIf]; AGroup 16435 1 [anon_sym_LBRACK];
     AGroup 16437 1 [anon_sym_LPAREN]; AGroup 16441 1 [anon_sym_POUND];
     AGroup 16455 1 [sym_kSpecialize]; AGroup 16461 1 [sym_kInherited];
     AGroup 17540 1 [sym_kString]; AGroup 3 2 syms_5; AGroup 15747 2 syms_9;
     AGroup 15749 2 syms_10; AGroup 16439 2 syms_6; AGroup 16443 2 syms_7; AGroup 16445 2 syms_8;
     AGroup 16457 2 syms_11; SGroup 8859 2 syms_12; SGroup 7280 3 syms_13;
     SGroup 10277 4 syms_14; AGroup 18147 5 syms_15; SGroup 8362 14 syms_17]);
   (141163, 20, [AGroup 5 1 [sym_ppDirective]; AGroup 16435 1 [anon_sym_LBRACK];
     AGroup 16437 1 [anon_sym_LPAREN]; AGroup 16441 1 [anon_sym_POUND];
     AGroup 16455 1 [sym_kSpecialize]; AGroup 16459 1 [sym_kIf]; AGroup 16461 1 [sym_kInherited];
     AGroup 17540 1 [sym_kString]; AGroup 3 2 syms_5; AGroup 16439 2 syms_6;
     AGroup 16443 2 syms_7; AGroup 16445 2 syms_8; AGroup 16447 2 syms_9; AGroup 16449 2 syms_10;
     AGroup 16457 2 syms_11; SGroup 8859 2 syms_12; SGroup 7280 3 syms_13; SGroup 8393 4 syms_14;
     AGroup 16451 5 syms_15; SGroup 8207 14 syms_17]);
   (141254, 20, [AGroup 5 1 [sym_ppDirective]; AGroup 16435 1 [anon_sym_LBRACK];
     AGroup 16437 1 [anon_sym_LPAREN]; AGroup 16441 1 [anon_sym_POUND];
     AGroup 16455 1 [sym_kSpecialize]; AGroup 16459 1 [sym_kIf]; AGroup 16461 1 [sym_kInherited];
     AGroup 17540 1 [sym_kString]; AGroup 3 2 syms_5; AGroup 16439 2 syms_6;
     AGroup 16443 2 syms_7; AGroup 16445 2 syms_8; AGroup 16447 2 syms_9; AGroup 16449 2 syms_10;
     AGroup 16457 2 syms_11; SGroup 8859 2 syms_12; SGroup 7280 3 syms_13; SGroup 8405 4 syms_14;
     AGroup 16451 5 syms_15; SGroup 8207 14 syms_17]);
   (141345, 20, [AGroup 5 1 [sym_ppDirective]; AGroup 16469 1 [anon_sym_LBRACK];
     AGroup 16471 1 [anon_sym_LPAREN]; AGroup 16475 1 [anon_sym_POUND];
     AGroup 16489 1 [sym_kSpecialize]; AGroup 16493 1 [sym_kIf]; AGroup 16495 1 [sym_kInherited];
     AGroup 17602 1 [sym_kString]; AGroup 3 2 syms_5; AGroup 16473 2 syms_6;
     AGroup 16477 2 syms_7; AGroup 16479 2 syms_8; AGroup 16481 2 syms_9; AGroup 16483 2 syms_10;
     AGroup 16491 2 syms_11; SGroup 8445 2 syms_12; SGroup 7193 3 syms_13; SGroup 7947 4 syms_14;
     AGroup 16485 5 syms_15; SGroup 7957 14 syms_17]);
   (141436, 5, [AGroup 5 1 [sym_ppDirective]; AGroup 3 2 syms_5; AGroup 15473 4 syms_25;
     AGroup 15403 18 syms_36; AGroup 15471 25 syms_144]);
   (141497, 20, [AGroup 5 1 [sym_ppDirective]; AGroup 16469 1 [anon_sym_LBRACK];
     AGroup 16471 1 [anon_sym_LPAREN]; AGroup 16475 1 [anon_sym_POUND];
     AGroup 16489 1 [sym_kSpecialize]; AGroup 16493 1 [sym_kIf]; AGroup 16495 1 [sym_kInherited];
     AGroup 17602 1 [sym_kString]; AGroup 3 2 syms_5; AGroup 16473 2 syms_6;
     AGroup 16477 2 syms_7; AGroup 16479 2 syms_8; AGroup 16481 2 syms_9; AGroup 16483 2 syms_10;
     AGroup 16491 2 syms_11; SGroup 8445 2 syms_12; SGroup 7193 3 syms_13; SGroup 7964 4 syms_14;
     AGroup 16485 5 syms_15; SGroup 7957 14 syms_17])
  ].

(** States 4259 to 4358. *)
Definition small_runs_4259 : list small_run :=
  [
   (141588, 20, [AGroup 5 1 [sym_ppDirective]; AGroup 16469 1 [anon_sym_LBRACK];
     AGroup 16471 1 [anon_sym_LPAREN]; AGroup 16475 1 [anon_sym_POUND];
     AGroup 16489 1 [sym_kSpecialize]; AGroup 16493 1 [sym_kIf]; AGroup 16495 1 [sym_kInherited];
     AGroup 17602 1 [sym_kString]; AGroup 3 2 syms_5; AGroup 16473 2 syms_6;
     AGroup 16477 2 syms_7; AGroup 16479 2 syms_8; AGroup 16481 2 syms_9; AGroup 16483 2 syms_10;
     AGroup 16491 2 syms_11; SGroup 8445 2 syms_12; SGroup 7193 3 syms_13; SGroup 7965 4 syms_14;
     AGroup 16485 5 syms_15; SGroup 7957 14 syms_17]);
   (141679, 20, [AGroup 5 1 [sym_ppDirective]; AGroup 16469 1 [anon_sym_LBRACK];
     AGroup 16471 1 [anon_sym_LPAREN]; AGroup 16475 1 [anon_sym_POUND];
     AGroup 16489 1 [sym_kSpecialize]; AGroup 16493 1 [sym_kIf]; AGroup 16495 1 [sym_kInherited];
     AGroup 17602 1 [sym_kString]; AGroup 3 2 syms_5; AGroup 16473 2 syms_6;
     AGroup 16477 2 syms_7; AGroup 16479 2 syms_8; AGroup 16481 2 syms_9; AGroup 16483 2 syms_10;
     AGroup 16491 2 syms_11; SGroup 8445 2 syms_12; SGroup 7193 3 syms_13; SGroup 7966 4 syms_14;
     AGroup 16485 5 syms_15; SGroup 7957 14 syms_17]);
   (141770, 21, [AGroup 5 1 [sym_ppDirective]; AGroup 16469 1 [anon_sym_LBRACK];
     AGroup 16471 1 [anon_sym_LPAREN]; AGroup 16475 1 [anon_sym_POUND]; AGroup 16483 1 [sym_kAt];
     AGroup 16489 1 [sym_kSpecialize]; AGroup 16493 1 [sym_kIf]; AGroup 16495 1 [sym_kInherited];
     AGroup 17602 1 [sym_kString]; AGroup 18149 1 [sym_kNot]; AGroup 3 2 syms_5;
     AGroup 16473 2 syms_6; AGroup 16477 2 syms_7; AGroup 16479 2 syms_8; AGroup 16481 2 syms_9;
     AGroup 16491 2 syms_11; SGroup 8445 2 syms_12; SGroup 7193 3 syms_13; SGroup 7966 4 syms_14;
     AGroup 16485 5 syms_15; SGroup 7957 14 syms_17]);
   (141863, 20, [AGroup 5 1 [sym_ppDirective]; AGroup 16469 1 [anon_sym_LBRACK];
     AGroup 16471 1 [anon_sym_LPAREN]; AGroup 16475 1 [anon_sym_POUND];
     AGroup 16489 1 [sym_kSpecialize]; AGroup 16493 1 [sym_kIf]; AGroup 16495 1 [sym_kInherited];
     AGroup 17602 1 [sym_kString]; AGroup 3 2 syms_5; AGroup 16473 2 syms_6;
     AGroup 16477 2 syms_7; AGroup 16479 2 syms_8; AGroup 16481 2 syms_9; AGroup 16483 2 syms_10;
     AGroup 16491 2 syms_11; SGroup 8445 2 syms_12; SGroup 7193 3 syms_13; SGroup 7968 4 syms_14;
     AGroup 16485 5 syms_15; SGroup 7957 14 syms_17]);
   (141954, 20, [AGroup 5 1 [sym_ppDirective]; AGroup 15755 1 [sym_kIf]; AGroup 16469 1 [anon_sym_LBRACK];
     AGroup 16471 1 [anon_sym_LPAREN]; AGroup 16475 1 [anon_sym_POUND];
     AGroup 16489 1 [sym_kSpecialize]; AGroup 16495 1 [sym_kInherited];
     AGroup 17602 1 [sym_kString]; AGroup 3 2 syms_5; AGroup 15747 2 syms_9;
     AGroup 15749 2 syms_10; AGroup 16473 2 syms_6; AGroup 16477 2 syms_7; AGroup 16479 2 syms_8;
     AGroup 16491 2 syms_11; SGroup 8445 2 syms_12; SGroup 7193 3 syms_13;
     SGroup 10286 4 syms_14; AGroup 18151 5 syms_15; SGroup 7973 14 syms_17]);
   (142045, 5, [AGroup 5 1 [sym_ppDirective]; AGroup 3 2 syms_5; AGroup 15504 4 syms_25;
     AGroup 15403 18 syms_36; AGroup 15502 25 syms_144]);
   (142106, 5, [AGroup 5 1 [sym_ppDirective]; AGroup 3 2 syms_5; AGroup 15484 4 syms_25;
     AGroup 15403 18 syms_36; AGroup 15482 25 syms_144]);
   (142167, 20, [AGroup 5 1 [sym_ppDirective]; AGroup 16469 1 [anon_sym_LBRACK];
     AGroup 16471 1 [anon_sym_LPAREN]; AGroup 16475 1 [anon_sym_POUND];
     AGroup 16489 1 [sym_kSpecialize]; AGroup 16493 1 [sym_kIf]; AGroup 16495 1 [sym_kInherited];
     AGroup 17602 1 [sym_kString]; AGroup 3 2 syms_5; AGroup 16473 2 syms_6;
     AGroup 16477 2 syms_7; AGroup 16479 2 syms_8; AGroup 16481 2 syms_9; AGroup 16483 2 syms_10;
     AGroup 16491 2 syms_11; SGroup 8445 2 syms_12; SGroup 7193 3 syms_13; SGroup 7975 4 syms_14;
     AGroup 16485 5 syms_15; SGroup 7957 14 syms_17]);
   (142258, 5, [AGroup 5 1 [sym_ppDirective]; AGroup 3 2 syms_5; AGroup 15492 4 syms_25;
     AGroup 15403 18 syms_36; AGroup 15490 25 syms_144]);
   (142319, 5, [AGroup 5 1 [sym_ppDirective]; AGroup 3 2 syms_5; AGroup 15401 4 syms_25;
     AGroup 15403 18 syms_36; AGroup 15399 25 syms_144]);
   (142380, 5, [AGroup 5 1 [sym_ppDirective]; AGroup 3 2 syms_5; AGroup 15439 4 syms_25;
     AGroup 15403 18 syms_36; AGroup 15437 25 syms_144]);
   (142441, 5, [AGroup 5 1 [sym_ppDirective]; AGroup 3 2 syms_5; AGroup 15488 4 syms_25;
     AGroup 15403 18 syms_36; AGroup 15486 25 syms_144]);
   (142502, 20, [AGroup 5 1 [sym_ppDirective]; AGroup 16469 1 [anon_sym_LBRACK];
     AGroup 16471 1 [anon_sym_LPAREN]; AGroup 16475 1 [anon_sym_POUND];
     AGroup 16489 1 [sym_kSpecialize]; AGroup 16493 1 [sym_kIf]; AGroup 16495 1 [sym_kInherited];
     AGroup 17602 1 [sym_kString]; AGroup 3 2 syms_5; AGroup 16473 2 syms_6;
     AGroup 16477 2 syms_7; AGroup 16479 2 syms_8; AGroup 16481 2 syms_9; AGroup 16483 2 syms_10;
     AGroup 16491 2 syms_11; SGroup 8445 2 syms_12; SGroup 7193 3 syms_13; SGroup 7976 4 syms_14;
     AGroup 16485 5 syms_15; SGroup 7957 14 syms_17]);
   (142593, 5, [AGroup 5 1 [sym_ppDirective]; AGroup 3 2 syms_5; AGroup 15496 4 syms_25;
     AGroup 15403 18 syms_36; AGroup 15494 25 syms_144]);
   (142654, 4, [AGroup 5 1 [sym_ppDirective]; AGroup 3 2 syms_5; AGroup 15295 4 syms_25;
     AGroup 15293 43 syms_145]);
   (142713, 20, [AGroup 5 1 [sym_ppDirective]; AGroup 16499 1 [anon_sym_LBRACK];
     AGroup 16501 1 [anon_sym_LPAREN]; AGroup 16505 1 [anon_sym_POUND];
     AGroup 16519 1 [sym_kSpecialize]; AGroup 16523 1 [sym_kIf]; AGroup 16525 1 [sym_kInherited];
     AGroup 16894 1 [sym_kString]; AGroup 3 2 syms_5; AGroup 16503 2 syms_6;
     AGroup 16507 2 syms_7; AGroup 16509 2 syms_8; AGroup 16511 2 syms_9; AGroup 16513 2 syms_10;
     AGroup 16521 2 syms_11; SGroup 8924 2 syms_12; SGroup 7300 3 syms_13; SGroup 8459 4 syms_14;
     AGroup 16515 5 syms_15; SGroup 8299 14 syms_17]);
   (142804, 4, [AGroup 5 1 [sym_ppDirective]; AGroup 3 2 syms_5; AGroup 15355 4 syms_25;
     AGroup 15353 43 syms_145]);
   (142863, 20, [AGroup 5 1 [sym_ppDirective]; AGroup 16499 1 [anon_sym_LBRACK];
     AGroup 16501 1 [anon_sym_LPAREN]; AGroup 16505 1 [anon_sym_POUND];
     AGroup 16519 1 [sym_kSpecialize]; AGroup 16523 1 [sym_kIf]; AGroup 16525 1 [sym_kInherited];
     AGroup 16894 1 [sym_kString]; AGroup 3 2 syms_5; AGroup 16503 2 syms_6;
     AGroup 16507 2 syms_7; AGroup 16509 2 syms_8; AGroup 16511 2 syms_9; AGroup 16513 2 syms_10;
     AGroup 16521 2 syms_11; SGroup 8924 2 syms_12; SGroup 7300 3 syms_13; SGroup 8369 4 syms_14;
     AGroup 16515 5 syms_15; SGroup 8299 14 syms_17]);
   (142954, 20, [AGroup 5 1 [sym_ppDirective]; AGroup 16499 1 [anon_sym_LBRACK];
     AGroup 16501 1 [anon_sym_LPAREN]; AGroup 16505 1 [anon_sym_POUND];
     AGroup 16519 1 [sym_kSpecialize]; AGroup 16523 1 [sym_kIf]; AGroup 16525 1 [sym_kInherited];
     AGroup 16894 1 [sym_kString]; AGroup 3 2 syms_5; AGroup 16503 2 syms_6;
     AGroup 16507 2 syms_7; AGroup 16509 2 syms_8; AGroup 16511 2 syms_9; AGroup 16513 2 syms_10;
     AGroup 16521 2 syms_11; SGroup 8924 2 syms_12; SGroup 7300 3 syms_13; SGroup 8370 4 syms_14;
     AGroup 16515 5 syms_15; SGroup 8299 14 syms_17]);
   (143045, 20, [AGroup 5 1 [sym_ppDirective]; AGroup 16499 1 [anon_sym_LBRACK];
     AGroup 16501 1 [anon_sym_LPAREN]; AGroup 16505 1 [anon_sym_POUND];
     AGroup 16519 1 [sym_kSpecialize]; AGroup 16523 1 [sym_kIf]; AGroup 16525 1 [sym_kInherited];
     AGroup 16894 1 [sym_kString]; AGroup 3 2 syms_5; AGroup 16503 2 syms_6;
     AGroup 16507 2 syms_7; AGroup 16509 2 syms_8; AGroup 16511 2 syms_9; AGroup 16513 2 syms_10;
     AGroup 16521 2 syms_11; SGroup 8924 2 syms_12; SGroup 7300 3 syms_13; SGroup 8382 4 syms_14;
     AGroup 16515 5 syms_15; SGroup 8299 14 syms_17]);
   (143136, 21, [AGroup 5 1 [sym_ppDirective]; AGroup 16499 1 [anon_sym_LBRACK];
     AGroup 16501 1 [anon_sym_LPAREN]; AGroup 16505 1 [anon_sym_POUND]; AGroup 16513 1 [sym_kAt];
     AGroup 16519 1 [sym_kSpecialize]; AGroup 16523 1 [sym_kIf]; AGroup 16525 1 [sym_kInherited];
     AGroup 16894 1 [sym_kString]; AGroup 18153 1 [sym_kNot]; AGroup 3 2 syms_5;
     AGroup 16503 2 syms_6; AGroup 16507 2 syms_7; AGroup 16509 2 syms_8; AGroup 16511 2 syms_9;
     AGroup 16521 2 syms_11; SGroup 8924 2 syms_12; SGroup 7300 3 syms_13; SGroup 8382 4 syms_14;
     AGroup 16515 5 syms_15; SGroup 8299 14 syms_17]);
   (143229, 20, [AGroup 5 1 [sym_ppDirective]; AGroup 16499 1 [anon_sym_LBRACK];
     AGroup 16501 1 [anon_sym_LPAREN]; AGroup 16505 1 [anon_sym_POUND];
     AGroup 16519 1 [sym_kSpecialize]; AGroup 16523 1 [sym_kIf]; AGroup 16525 1 [sym_kInherited];
     AGroup 16894 1 [sym_kString]; AGroup 3 2 syms_5; AGroup 16503 2 syms_6;
     AGroup 16507 2 syms_7; AGroup 16509 2 syms_8; AGroup 16511 2 syms_9; AGroup 16513 2 syms_10;
     AGroup 16521 2 syms_11; SGroup 8924 2 syms_12; SGroup 7300 3 syms_13; SGroup 8389 4 syms_14;
     AGroup 16515 5 syms_15; SGroup 8299 14 syms_17]);
   (143320, 31, [AGroup 5 1 [sym_ppDirective]; AGroup 13347 1 [anon_sym_LBRACK];
     AGroup 13351 1 [aux_sym_ppUsesBlock_token1]; AGroup 13365 1 [sym_identifier];
     AGroup 13367 1 [sym_kGeneric]; AGroup 13369 1 [sym_kOperator]; AGroup 13373 1 [sym_kStrict];
     AGroup 13377 1 [sym_kCase]; AGroup 13379 1 [sym_kClass]; AGroup 13391 1 [sym_kProperty];
     AGroup 13395 1 [sym_kType]; AGroup 18155 1 [anon_sym_SEMI]; AGroup 18157 1 [sym_kEnd];
     SGroup 2 1 [sym__ppIf]; SGroup 6354 1 [sym__visibility]; SGroup 9779 1 [sym_ppBlock];
     SGroup 9835 1 [sym__declOperator]; SGroup 10247 1 [sym__declProc];
     SGroup 10617 1 [sym_rttiAttributes]; SGroup 10730 1 [aux_sym_rttiAttributes_repeat2];
     SGroup 13987 1 [aux_sym_genericArg_repeat1]; SGroup 14434 1 [sym_declVariant];
     SGroup 14837 1 [sym__declClass]; AGroup 3 2 syms_5; AGroup 13381 2 syms_65;
     AGroup 13393 2 syms_66; SGroup 5685 2 syms_68; SGroup 10490 3 syms_69;
     AGroup 13383 4 syms_3; AGroup 13371 6 syms_70; SGroup 6150 6 syms_71]);
   (143433, 20, [AGroup 5 1 [sym_ppDirective]; AGroup 15755 1 [sym_kIf]; AGroup 16499 1 [anon_sym_LBRACK];
     AGroup 16501 1 [anon_sym_LPAREN]; AGroup 16505 1 [anon_sym_POUND];
     AGroup 16519 1 [sym_kSpecialize]; AGroup 16525 1 [sym_kInherited];
     AGroup 16894 1 [sym_kString]; AGroup 3 2 syms_5; AGroup 15747 2 syms_9;
     AGroup 15749 2 syms_10; AGroup 16503 2 syms_6; AGroup 16507 2 syms_7; AGroup 16509 2 syms_8;
     AGroup 16521 2 syms_11; SGroup 8924 2 syms_12; SGroup 7300 3 syms_13;
     SGroup 10299 4 syms_14; AGroup 18159 5 syms_15; SGroup 8395 14 syms_17]);
   (143524, 20, [AGroup 5 1 [sym_ppDirective]; AGroup 16499 1 [anon_sym_LBRACK];
     AGroup 16501 1 [anon_sym_LPAREN]; AGroup 16505 1 [anon_sym_POUND];
     AGroup 16519 1 [sym_kSpecialize]; AGroup 16523 1 [sym_kIf]; AGroup 16525 1 [sym_kInherited];
     AGroup 16894 1 [sym_kString]; AGroup 3 2 syms_5; AGroup 16503 2 syms_6;
     AGroup 16507 2 syms_7; AGroup 16509 2 syms_8; AGroup 16511 2 syms_9; AGroup 16513 2 syms_10;
     AGroup 16521 2 syms_11; SGroup 8924 2 syms_12; SGroup 7300 3 syms_13; SGroup 8419 4 syms_14;
     AGroup 16515 5 syms_15; SGroup 8299 14 syms_17]);
   (143615, 20, [AGroup 5 1 [sym_ppDirective]; AGroup 16499 1 [anon_sym_LBRACK];
     AGroup 16501 1 [anon_sym_LPAREN]; AGroup 16505 1 [anon_sym_POUND];
     AGroup 16519 1 [sym_kSpecialize]; AGroup 16523 1 [sym_kIf]; AGroup 16525 1 [sym_kInherited];
     AGroup 16894 1 [sym_kString]; AGroup 3 2 syms_5; AGroup 16503 2 syms_6;
     AGroup 16507 2 syms_7; AGroup 16509 2 syms_8; AGroup 16511 2 syms_9; AGroup 16513 2 syms_10;
     AGroup 16521 2 syms_11; SGroup 8924 2 syms_12; SGroup 7300 3 syms_13; SGroup 8502 4 syms_14;
     AGroup 16515 5 syms_15; SGroup 8299 14 syms_17]);
   (143706, 20, [AGroup 5 1 [sym_ppDirective]; AGroup 3196 1 [anon_sym_LBRACK];
     AGroup 3198 1 [anon_sym_LPAREN]; AGroup 3202 1 [anon_sym_POUND];
     AGroup 3218 1 [sym_kSpecialize]; AGroup 3240 1 [sym_kInherited];
     AGroup 3246 1 [sym_kString]; AGroup 14949 1 [sym_kIf]; AGroup 3 2 syms_5;
     AGroup 3200 2 syms_6; AGroup 3204 2 syms_7; AGroup 3206 2 syms_8; AGroup 3208 2 syms_9;
     AGroup 3210 2 syms_10; AGroup 3234 2 syms_11; SGroup 6992 2 syms_12; SGroup 5959 3 syms_13;
     SGroup 6886 4 syms_14; AGroup 3212 5 syms_15; SGroup 6884 14 syms_17]);
   (143797, 20, [AGroup 5 1 [sym_ppDirective]; AGroup 3196 1 [anon_sym_LBRACK];
     AGroup 3198 1 [anon_sym_LPAREN]; AGroup 3202 1 [anon_sym_POUND];
     AGroup 3218 1 [sym_kSpecialize]; AGroup 3240 1 [sym_kInherited];
     AGroup 3246 1 [sym_kString]; AGroup 14949 1 [sym_kIf]; AGroup 3 2 syms_5;
     AGroup 3200 2 syms_6; AGroup 3204 2 syms_7; AGroup 3206 2 syms_8; AGroup 3208 2 syms_9;
     AGroup 3210 2 syms_10; AGroup 3234 2 syms_11; SGroup 6992 2 syms_12; SGroup 5959 3 syms_13;
     SGroup 6643 4 syms_14; AGroup 3212 5 syms_15; SGroup 6884 14 syms_17]);
   (143888, 20, [AGroup 5 1 [sym_ppDirective]; AGroup 3196 1 [anon_sym_LBRACK];
     AGroup 3198 1 [anon_sym_LPAREN]; AGroup 3202 1 [anon_sym_POUND];
     AGroup 3218 1 [sym_kSpecialize]; AGroup 3240 1 [sym_kInherited];
     AGroup 3246 1 [sym_kString]; AGroup 14949 1 [sym_kIf]; AGroup 3 2 syms_5;
     AGroup 3200 2 syms_6; AGroup 3204 2 syms_7; AGroup 3206 2 syms_8; AGroup 3208 2 syms_9;
     AGroup 3210 2 syms_10; AGroup 3234 2 syms_11; SGroup 6992 2 syms_12; SGroup 5959 3 syms_13;
     SGroup 6676 4 syms_14; AGroup 3212 5 syms_15; SGroup 6884 14 syms_17]);
   (143979, 20, [AGroup 5 1 [sym_ppDirective]; AGroup 3196 1 [anon_sym_LBRACK];
     AGroup 3198 1 [anon_sym_LPAREN]; AGroup 3202 1 [anon_sym_POUND];
     AGroup 3218 1 [sym_kSpecialize]; AGroup 3240 1 [sym_kInherited];
     AGroup 3246 1 [sym_kString]; AGroup 14949 1 [sym_kIf]; AGroup 3 2 syms_5;
     AGroup 3200 2 syms_6; AGroup 3204 2 syms_7; AGroup 3206 2 syms_8; AGroup 3208 2 syms_9;
     AGroup 3210 2 syms_10; AGroup 3234 2 syms_11; SGroup 6992 2 syms_12; SGroup 5959 3 syms_13;
     SGroup 6677 4 syms_14; AGroup 3212 5 syms_15; SGroup 6884 14 syms_17]);
   (144070, 21, [AGroup 5 1 [sym_ppDirective]; AGroup 3196 1 [anon_sym_LBRACK];
     AGroup 3198 1 [anon_sym_LPAREN]; AGroup 3202 1 [anon_sym_POUND]; AGroup 3210 1 [sym_kAt];
     AGroup 3218 1 [sym_kSpecialize]; AGroup 3240 1 [sym_kInherited];
     AGroup 3246 1 [sym_kString]; AGroup 14949 1 [sym_kIf]; AGroup 18161 1 [sym_kNot];
     AGroup 3 2 syms_5; AGroup 3200 2 syms_6; AGroup 3204 2 syms_7; AGroup 3206 2 syms_8;
     AGroup 3208 2 syms_9; AGroup 3234 2 syms_11; SGroup 6992 2 syms_12; SGroup 5959 3 syms_13;
     SGroup 6677 4 syms_14; AGroup 3212 5 syms_15; SGroup 6884 14 syms_17]);
   (144163, 20, [AGroup 5 1 [sym_ppDirective]; AGroup 3196 1 [anon_sym_LBRACK];
     AGroup 3198 1 [anon_sym_LPAREN]; AGroup 3202 1 [anon_sym_POUND];
     AGroup 3218 1 [sym_kSpecialize]; AGroup 3240 1 [sym_kInherited];
     AGroup 3246 1 [sym_kString]; AGroup 14949 1 [sym_kIf]; AGroup 3 2 syms_5;
     AGroup 3200 2 syms_6; AGroup 3204 2 syms_7; AGroup 3206 2 syms_8; AGroup 3208 2 syms_9;
     AGroup 3210 2 syms_10; AGroup 3234 2 syms_11; SGroup 6992 2 syms_12; SGroup 5959 3 syms_13;
     SGroup 6682 4 syms_14; AGroup 3212 5 syms_15; SGroup 6884 14 syms_17]);
   (144254, 20, [AGroup 5 1 [sym_ppDirective]; AGroup 15761 1 [anon_sym_LBRACK];
     AGroup 15763 1 [anon_sym_LPAREN]; AGroup 15767 1 [anon_sym_POUND];
     AGroup 15781 1 [sym_kSpecialize]; AGroup 15787 1 [sym_kInherited]; AGroup 16229 1 [sym_kIf];
     AGroup 17864 1 [sym_kString]; AGroup 3 2 syms_5; AGroup 15765 2 syms_6;
     AGroup 15769 2 syms_7; AGroup 15771 2 syms_8; AGroup 15783 2 syms_11; AGroup 16221 2 syms_9;
     AGroup 16223 2 syms_10; SGroup 9180 2 syms_12; SGroup 7467 3 syms_13; SGroup 9296 4 syms_14;
     AGroup 16225 5 syms_15; SGroup 9076 14 syms_17]);
   (144345, 20, [AGroup 5 1 [sym_ppDirective]; AGroup 3196 1 [anon_sym_LBRACK];
     AGroup 3198 1 [anon_sym_LPAREN]; AGroup 3202 1 [anon_sym_POUND];
     AGroup 3218 1 [sym_kSpecialize]; AGroup 3240 1 [sym_kInherited];
     AGroup 3246 1 [sym_kString]; AGroup 15755 1 [sym_kIf]; AGroup 3 2 syms_5;
     AGroup 3200 2 syms_6; AGroup 3204 2 syms_7; AGroup 3206 2 syms_8; AGroup 3234 2 syms_11;
     AGroup 15747 2 syms_9; AGroup 15749 2 syms_10; SGroup 6992 2 syms_12; SGroup 5959 3 syms_13;
     SGroup 10305 4 syms_14; AGroup 18163 5 syms_15; SGroup 6749 14 syms_17]);
   (144436, 20, [AGroup 5 1 [sym_ppDirective]; AGroup 3196 1 [anon_sym_LBRACK];
     AGroup 3198 1 [anon_sym_LPAREN]; AGroup 3202 1 [anon_sym_POUND];
     AGroup 3218 1 [sym_kSpecialize]; AGroup 3240 1 [sym_kInherited];
     AGroup 3246 1 [sym_kString]; AGroup 14949 1 [sym_kIf]; AGroup 3 2 syms_5;
     AGroup 3200 2 syms_6; AGroup 3204 2 syms_7; AGroup 3206 2 syms_8; AGroup 3208 2 syms_9;
     AGroup 3210 2 syms_10; AGroup 3234 2 syms_11; SGroup 6992 2 syms_12; SGroup 5959 3 syms_13;
     SGroup 6822 4 syms_14; AGroup 3212 5 syms_15; SGroup 6884 14 syms_17]);
   (144527, 20, [AGroup 5 1 [sym_ppDirective]; AGroup 3196 1 [anon_sym_LBRACK];
     AGroup 3198 1 [anon_sym_LPAREN]; AGroup 3202 1 [anon_sym_POUND];
     AGroup 3218 1 [sym_kSpecialize]; AGroup 3240 1 [sym_kInherited];
     AGroup 3246 1 [sym_kString]; AGroup 14949 1 [sym_kIf]; AGroup 3 2 syms_5;
     AGroup 3200 2 syms_6; AGroup 3204 2 syms_7; AGroup 3206 2 syms_8; AGroup 3208 2 syms_9;
     AGroup 3210 2 syms_10; AGroup 3234 2 syms_11; SGroup 6992 2 syms_12; SGroup 5959 3 syms_13;
     SGroup 6937 4 syms_14; AGroup 3212 5 syms_15; SGroup 6884 14 syms_17]);
   (144618, 4, [AGroup 5 1 [sym_ppDirective]; AGroup 3 2 syms_5; AGroup 15295 4 syms_25;
     AGroup 15293 43 syms_146]);
   (144677, 20, [AGroup 5 1 [sym_ppDirective]; AGroup 16535 1 [anon_sym_LBRACK];
     AGroup 16537 1 [anon_sym_LPAREN]; AGroup 16541 1 [anon_sym_POUND];
     AGroup 16555 1 [sym_kSpecialize]; AGroup 16559 1 [sym_kIf]; AGroup 16561 1 [sym_kInherited];
     AGroup 17104 1 [sym_kString]; AGroup 3 2 syms_5; AGroup 16539 2 syms_6;
     AGroup 16543 2 syms_7; AGroup 16545 2 syms_8; AGroup 16547 2 syms_9; AGroup 16549 2 syms_10;
     AGroup 16557 2 syms_11; SGroup 8601 2 syms_12; SGroup 7304 3 syms_13; SGroup 8181 4 syms_14;
     AGroup 16551 5 syms_15; SGroup 8287 14 syms_17]);
   (144768, 4, [AGroup 5 1 [sym_ppDirective]; AGroup 3 2 syms_5; AGroup 15355 4 syms_25;
     AGroup 15353 43 syms_146]);
   (144827, 20, [AGroup 5 1 [sym_ppDirective]; AGroup 16535 1 [anon_sym_LBRACK];
     AGroup 16537 1 [anon_sym_LPAREN]; AGroup 16541 1 [anon_sym_POUND];
     AGroup 16555 1 [sym_kSpecialize]; AGroup 16559 1 [sym_kIf]; AGroup 16561 1 [sym_kInherited];
     AGroup 17104 1 [sym_kString]; AGroup 3 2 syms_5; AGroup 16539 2 syms_6;
     AGroup 16543 2 syms_7; AGroup 16545 2 syms_8; AGroup 16547 2 syms_9; AGroup 16549 2 syms_10;
     AGroup 16557 2 syms_11; SGroup 8601 2 syms_12; SGroup 7304 3 syms_13; SGroup 8342 4 syms_14;
     AGroup 16551 5 syms_15; SGroup 8287 14 syms_17]);
   (144918, 20, [AGroup 5 1 [sym_ppDirective]; AGroup 16535 1 [anon_sym_LBRACK];
     AGroup 16537 1 [anon_sym_LPAREN]; AGroup 16541 1 [anon_sym_POUND];
     AGroup 16555 1 [sym_kSpecialize]; AGroup 16559 1 [sym_kIf]; AGroup 16561 1 [sym_kInherited];
     AGroup 17104 1 [sym_kString]; AGroup 3 2 syms_5; AGroup 16539 2 syms_6;
     AGroup 16543 2 syms_7; AGroup 16545 2 syms_8; AGroup 16547 2 syms_9; AGroup 16549 2 syms_10;
     AGroup 16557 2 syms_11; SGroup 8601 2 syms_12; SGroup 7304 3 syms_13; SGroup 8364 4 syms_14;
     AGroup 16551 5 syms_15; SGroup 8287 14 syms_17]);
   (145009, 20, [AGroup 5 1 [sym_ppDirective]; AGroup 16535 1 [anon_sym_LBRACK];
     AGroup 16537 1 [anon_sym_LPAREN]; AGroup 16541 1 [anon_sym_POUND];
     AGroup 16555 1 [sym_kSpecialize]; AGroup 16559 1 [sym_kIf]; AGroup 16561 1 [sym_kInherited];
     AGroup 17104 1 [sym_kString]; AGroup 3 2 syms_5; AGroup 16539 2 syms_6;
     AGroup 16543 2 syms_7; AGroup 16545 2 syms_8; AGroup 16547 2 syms_9; AGroup 16549 2 syms_10;
     AGroup 16557 2 syms_11; SGroup 8601 2 syms_12; SGroup 7304 3 syms_13; SGroup 8380 4 syms_14;
     AGroup 16551 5 syms_15; SGroup 8287 14 syms_17]);
   (145100, 21, [AGroup 5 1 [sym_ppDirective]; AGroup 16535 1 [anon_sym_LBRACK];
     AGroup 16537 1 [anon_sym_LPAREN]; AGroup 16541 1 [anon_sym_POUND]; AGroup 16549 1 [sym_kAt];
     AGroup 16555 1 [sym_kSpecialize]; AGroup 16559 1 [sym_kIf]; AGroup 16561 1 [sym_kInherited];
     AGroup 17104 1 [sym_kString]; AGroup 18165 1 [sym_kNot]; AGroup 3 2 syms_5;
     AGroup 16539 2 syms_6; AGroup 16543 2 syms_7; AGroup 16545 2 syms_8; AGroup 16547 2 syms_9;
     AGroup 16557 2 syms_11; SGroup 8601 2 syms_12; SGroup 7304 3 syms_13; SGroup 8380 4 syms_14;
     AGroup 16551 5 syms_15; SGroup 8287 14 syms_17]);
   (145193, 20, [AGroup 5 1 [sym_ppDirective]; AGroup 16535 1 [anon_sym_LBRACK];
     AGroup 16537 1 [anon_sym_LPAREN]; AGroup 16541 1 [anon_sym_POUND];
     AGroup 16555 1 [sym_kSpecialize]; AGroup 16559 1 [sym_kIf]; AGroup 16561 1 [sym_kInherited];
     AGroup 17104 1 [sym_kString]; AGroup 3 2 syms_5; AGroup 16539 2 syms_6;
     AGroup 16543 2 syms_7; AGroup 16545 2 syms_8; AGroup 16547 2 syms_9; AGroup 16549 2 syms_10;
     AGroup 16557 2 syms_11; SGroup 8601 2 syms_12; SGroup 7304 3 syms_13; SGroup 8398 4 syms_14;
     AGroup 16551 5 syms_15; SGroup 8287 14 syms_17]);
   (145284, 20, [AGroup 5 1 [sym_ppDirective]; AGroup 15755 1 [sym_kIf]; AGroup 16535 1 [anon_sym_LBRACK];
     AGroup 16537 1 [anon_sym_LPAREN]; AGroup 16541 1 [anon_sym_POUND];
     AGroup 16555 1 [sym_kSpecialize]; AGroup 16561 1 [sym_kInherited];
     AGroup 17104 1 [sym_kString]; AGroup 3 2 syms_5; AGroup 15747 2 syms_9;
     AGroup 15749 2 syms_10; AGroup 16539 2 syms_6; AGroup 16543 2 syms_7; AGroup 16545 2 syms_8;
     AGroup 16557 2 syms_11; SGroup 8601 2 syms_12; SGroup 7304 3 syms_13;
     SGroup 10310 4 syms_14; AGroup 18167 5 syms_15; SGroup 8423 14 syms_17]);
   (145375, 20, [AGroup 5 1 [sym_ppDirective]; AGroup 16535 1 [anon_sym_LBRACK];
     AGroup 16537 1 [anon_sym_LPAREN]; AGroup 16541 1 [anon_sym_POUND];
     AGroup 16555 1 [sym_kSpecialize]; AGroup 16559 1 [sym_kIf]; AGroup 16561 1 [sym_kInherited];
     AGroup 17104 1 [sym_kString]; AGroup 3 2 syms_5; AGroup 16539 2 syms_6;
     AGroup 16543 2 syms_7; AGroup 16545 2 syms_8; AGroup 16547 2 syms_9; AGroup 16549 2 syms_10;
     AGroup 16557 2 syms_11; SGroup 8601 2 syms_12; SGroup 7304 3 syms_13; SGroup 8424 4 syms_14;
     AGroup 16551 5 syms_15; SGroup 8287 14 syms_17]);
   (145466, 20, [AGroup 5 1 [sym_ppDirective]; AGroup 16535 1 [anon_sym_LBRACK];
     AGroup 16537 1 [anon_sym_LPAREN]; AGroup 16541 1 [anon_sym_POUND];
     AGroup 16555 1 [sym_kSpecialize]; AGroup 16559 1 [sym_kIf]; AGroup 16561 1 [sym_kInherited];
     AGroup 17104 1 [sym_kString]; AGroup 3 2 syms_5; AGroup 16539 2 syms_6;
     AGroup 16543 2 syms_7; AGroup 16545 2 syms_8; AGroup 16547 2 syms_9; AGroup 16549 2 syms_10;
     AGroup 16557 2 syms_11; SGroup 8601 2 syms_12; SGroup 7304 3 syms_13; SGroup 8432 4 syms_14;
     AGroup 16551 5 syms_15; SGroup 8287 14 syms_17]);
   (145557, 20, [AGroup 5 1 [sym_ppDirective]; AGroup 15556 1 [anon_sym_LBRACK];
     AGroup 15558 1 [anon_sym_LPAREN]; AGroup 15562 1 [anon_sym_POUND];
     AGroup 15574 1 [sym_kSpecialize]; AGroup 15580 1 [sym_kIf]; AGroup 15582 1 [sym_kInherited];
     AGroup 15584 1 [sym_kString]; AGroup 3 2 syms_5; AGroup 15560 2 syms_6;
     AGroup 15564 2 syms_7; AGroup 15566 2 syms_8; AGroup 15568 2 syms_9; AGroup 15570 2 syms_10;
     AGroup 15578 2 syms_11; SGroup 7416 2 syms_12; SGroup 6479 3 syms_13; SGroup 7266 4 syms_14;
     AGroup 15572 5 syms_15; SGroup 7271 14 syms_17]);
   (145648, 20, [AGroup 5 1 [sym_ppDirective]; AGroup 15556 1 [anon_sym_LBRACK];
     AGroup 15558 1 [anon_sym_LPAREN]; AGroup 15562 1 [anon_sym_POUND];
     AGroup 15574 1 [sym_kSpecialize]; AGroup 15580 1 [sym_kIf]; AGroup 15582 1 [sym_kInherited];
     AGroup 15584 1 [sym_kString]; AGroup 3 2 syms_5; AGroup 15560 2 syms_6;
     AGroup 15564 2 syms_7; AGroup 15566 2 syms_8; AGroup 15568 2 syms_9; AGroup 15570 2 syms_10;
     AGroup 15578 2 syms_11; SGroup 7416 2 syms_12; SGroup 6479 3 syms_13; SGroup 7273 4 syms_14;
     AGroup 15572 5 syms_15; SGroup 7271 14 syms_17]);
   (145739, 20, [AGroup 5 1 [sym_ppDirective]; AGroup 15556 1 [anon_sym_LBRACK];
     AGroup 15558 1 [anon_sym_LPAREN]; AGroup 15562 1 [anon_sym_POUND];
     AGroup 15574 1 [sym_kSpecialize]; AGroup 15580 1 [sym_kIf]; AGroup 15582 1 [sym_kInherited];
     AGroup 15584 1 [sym_kString]; AGroup 3 2 syms_5; AGroup 15560 2 syms_6;
     AGroup 15564 2 syms_7; AGroup 15566 2 syms_8; AGroup 15568 2 syms_9; AGroup 15570 2 syms_10;
     AGroup 15578 2 syms_11; SGroup 7416 2 syms_12; SGroup 6479 3 syms_13; SGroup 7274 4 syms_14;
     AGroup 15572 5 syms_15; SGroup 7271 14 syms_17]);
   (145830, 20, [AGroup 5 1 [sym_ppDirective]; AGroup 15556 1 [anon_sym_LBRACK];
     AGroup 15558 1 [anon_sym_LPAREN]; AGroup 15562 1 [anon_sym_POUND];
     AGroup 15574 1 [sym_kSpecialize]; AGroup 15580 1 [sym_kIf]; AGroup 15582 1 [sym_kInherited];
     AGroup 15584 1 [sym_kString]; AGroup 3 2 syms_5; AGroup 15560 2 syms_6;
     AGroup 15564 2 syms_7; AGroup 15566 2 syms_8; AGroup 15568 2 syms_9; AGroup 15570 2 syms_10;
     AGroup 15578 2 syms_11; SGroup 7416 2 syms_12; SGroup 6479 3 syms_13; SGroup 7275 4 syms_14;
     AGroup 15572 5 syms_15; SGroup 7271 14 syms_17]);
   (145921, 21, [AGroup 5 1 [sym_ppDirective]; AGroup 15556 1 [anon_sym_LBRACK];
     AGroup 15558 1 [anon_sym_LPAREN]; AGroup 15562 1 [anon_sym_POUND]; AGroup 15570 1 [sym_kAt];
     AGroup 15574 1 [sym_kSpecialize]; AGroup 15580 1 [sym_kIf]; AGroup 15582 1 [sym_kInherited];
     AGroup 15584 1 [sym_kString]; AGroup 18169 1 [sym_kNot]; AGroup 3 2 syms_5;
     AGroup 15560 2 syms_6; AGroup 15564 2 syms_7; AGroup 15566 2 syms_8; AGroup 15568 2 syms_9;
     AGroup 15578 2 syms_11; SGroup 7416 2 syms_12; SGroup 6479 3 syms_13; SGroup 7275 4 syms_14;
     AGroup 15572 5 syms_15; SGroup 7271 14 syms_17]);
   (146014, 20, [AGroup 5 1 [sym_ppDirective]; AGroup 15556 1 [anon_sym_LBRACK];
     AGroup 15558 1 [anon_sym_LPAREN]; AGroup 15562 1 [anon_sym_POUND];
     AGroup 15574 1 [sym_kSpecialize]; AGroup 15580 1 [sym_kIf]; AGroup 15582 1 [sym_kInherited];
     AGroup 15584 1 [sym_kString]; AGroup 3 2 syms_5; AGroup 15560 2 syms_6;
     AGroup 15564 2 syms_7; AGroup 15566 2 syms_8; AGroup 15568 2 syms_9; AGroup 15570 2 syms_10;
     AGroup 15578 2 syms_11; SGroup 7416 2 syms_12; SGroup 6479 3 syms_13; SGroup 7276 4 syms_14;
     AGroup 15572 5 syms_15; SGroup 7271 14 syms_17]);
   (146105, 20, [AGroup 5 1 [sym_ppDirective]; AGroup 15556 1 [anon_sym_LBRACK];
     AGroup 15558 1 [anon_sym_LPAREN]; AGroup 15562 1 [anon_sym_POUND];
     AGroup 15574 1 [sym_kSpecialize]; AGroup 15582 1 [sym_kInherited];
     AGroup 15584 1 [sym_kString]; AGroup 15755 1 [sym_kIf]; AGroup 3 2 syms_5;
     AGroup 15560 2 syms_6; AGroup 15564 2 syms_7; AGroup 15566 2 syms_8; AGroup 15578 2 syms_11;
     AGroup 15747 2 syms_9; AGroup 15749 2 syms_10; SGroup 7416 2 syms_12; SGroup 6479 3 syms_13;
     SGroup 10316 4 syms_14; AGroup 18171 5 syms_15; SGroup 7277 14 syms_17]);
   (146196, 20, [AGroup 5 1 [sym_ppDirective]; AGroup 16071 1 [anon_sym_LBRACK];
     AGroup 16073 1 [anon_sym_LPAREN]; AGroup 16077 1 [anon_sym_POUND];
     AGroup 16091 1 [sym_kSpecialize]; AGroup 16095 1 [sym_kIf]; AGroup 16097 1 [sym_kInherited];
     AGroup 17710 1 [sym_kString]; AGroup 3 2 syms_5; AGroup 16075 2 syms_6;
     AGroup 16079 2 syms_7; AGroup 16081 2 syms_8; AGroup 16083 2 syms_9; AGroup 16085 2 syms_10;
     AGroup 16093 2 syms_11; SGroup 8930 2 syms_12; SGroup 7257 3 syms_13; SGroup 8333 4 syms_14;
     AGroup 16087 5 syms_15; SGroup 8310 14 syms_17]);
   (146287, 20, [AGroup 5 1 [sym_ppDirective]; AGroup 15556 1 [anon_sym_LBRACK];
     AGroup 15558 1 [anon_sym_LPAREN]; AGroup 15562 1 [anon_sym_POUND];
     AGroup 15574 1 [sym_kSpecialize]; AGroup 15580 1 [sym_kIf]; AGroup 15582 1 [sym_kInherited];
     AGroup 15584 1 [sym_kString]; AGroup 3 2 syms_5; AGroup 15560 2 syms_6;
     AGroup 15564 2 syms_7; AGroup 15566 2 syms_8; AGroup 15568 2 syms_9; AGroup 15570 2 syms_10;
     AGroup 15578 2 syms_11; SGroup 7416 2 syms_12; SGroup 6479 3 syms_13; SGroup 7278 4 syms_14;
     AGroup 15572 5 syms_15; SGroup 7271 14 syms_17]);
   (146378, 20, [AGroup 5 1 [sym_ppDirective]; AGroup 15556 1 [anon_sym_LBRACK];
     AGroup 15558 1 [anon_sym_LPAREN]; AGroup 15562 1 [anon_sym_POUND];
     AGroup 15574 1 [sym_kSpecialize]; AGroup 15580 1 [sym_kIf]; AGroup 15582 1 [sym_kInherited];
     AGroup 15584 1 [sym_kString]; AGroup 3 2 syms_5; AGroup 15560 2 syms_6;
     AGroup 15564 2 syms_7; AGroup 15566 2 syms_8; AGroup 15568 2 syms_9; AGroup 15570 2 syms_10;
     AGroup 15578 2 syms_11; SGroup 7416 2 syms_12; SGroup 6479 3 syms_13; SGroup 7279 4 syms_14;
     AGroup 15572 5 syms_15; SGroup 7271 14 syms_17]);
   (146469, 4, [AGroup 5 1 [sym_ppDirective]; AGroup 3 2 syms_5; AGroup 15295 4 syms_25;
     AGroup 15293 43 syms_147]);
   (146528, 20, [AGroup 5 1 [sym_ppDirective]; AGroup 14953 1 [anon_sym_LBRACK];
     AGroup 14955 1 [anon_sym_LPAREN]; AGroup 14959 1 [anon_sym_POUND];
     AGroup 14971 1 [sym_kSpecialize]; AGroup 14975 1 [sym_kIf]; AGroup 14977 1 [sym_kInherited];
     AGroup 14979 1 [sym_kString]; AGroup 3 2 syms_5; AGroup 14957 2 syms_6;
     AGroup 14961 2 syms_7; AGroup 14963 2 syms_8; AGroup 14965 2 syms_9; AGroup 14967 2 syms_10;
     AGroup 14973 2 syms_11; SGroup 7196 2 syms_12; SGroup 6178 3 syms_13; SGroup 7095 4 syms_14;
     AGroup 14969 5 syms_15; SGroup 7086 14 syms_17]);
   (146619, 20, [AGroup 5 1 [sym_ppDirective]; AGroup 16569 1 [anon_sym_LBRACK];
     AGroup 16571 1 [anon_sym_LPAREN]; AGroup 16575 1 [anon_sym_POUND];
     AGroup 16589 1 [sym_kSpecialize]; AGroup 16593 1 [sym_kIf]; AGroup 16595 1 [sym_kInherited];
     AGroup 17788 1 [sym_kString]; AGroup 3 2 syms_5; AGroup 16573 2 syms_6;
     AGroup 16577 2 syms_7; AGroup 16579 2 syms_8; AGroup 16581 2 syms_9; AGroup 16583 2 syms_10;
     AGroup 16591 2 syms_11; SGroup 8889 2 syms_12; SGroup 7286 3 syms_13; SGroup 8320 4 syms_14;
     AGroup 16585 5 syms_15; SGroup 8506 14 syms_17]);
   (146710, 20, [AGroup 5 1 [sym_ppDirective]; AGroup 14953 1 [anon_sym_LBRACK];
     AGroup 14955 1 [anon_sym_LPAREN]; AGroup 14959 1 [anon_sym_POUND];
     AGroup 14971 1 [sym_kSpecialize]; AGroup 14975 1 [sym_kIf]; AGroup 14977 1 [sym_kInherited];
     AGroup 14979 1 [sym_kString]; AGroup 3 2 syms_5; AGroup 14957 2 syms_6;
     AGroup 14961 2 syms_7; AGroup 14963 2 syms_8; AGroup 14965 2 syms_9; AGroup 14967 2 syms_10;
     AGroup 14973 2 syms_11; SGroup 7196 2 syms_12; SGroup 6178 3 syms_13; SGroup 7081 4 syms_14;
     AGroup 14969 5 syms_15; SGroup 7086 14 syms_17]);
   (146801, 20, [AGroup 5 1 [sym_ppDirective]; AGroup 14953 1 [anon_sym_LBRACK];
     AGroup 14955 1 [anon_sym_LPAREN]; AGroup 14959 1 [anon_sym_POUND];
     AGroup 14971 1 [sym_kSpecialize]; AGroup 14975 1 [sym_kIf]; AGroup 14977 1 [sym_kInherited];
     AGroup 14979 1 [sym_kString]; AGroup 3 2 syms_5; AGroup 14957 2 syms_6;
     AGroup 14961 2 syms_7; AGroup 14963 2 syms_8; AGroup 14965 2 syms_9; AGroup 14967 2 syms_10;
     AGroup 14973 2 syms_11; SGroup 7196 2 syms_12; SGroup 6178 3 syms_13; SGroup 7090 4 syms_14;
     AGroup 14969 5 syms_15; SGroup 7086 14 syms_17]);
   (146892, 20, [AGroup 5 1 [sym_ppDirective]; AGroup 14953 1 [anon_sym_LBRACK];
     AGroup 14955 1 [anon_sym_LPAREN]; AGroup 14959 1 [anon_sym_POUND];
     AGroup 14971 1 [sym_kSpecialize]; AGroup 14975 1 [sym_kIf]; AGroup 14977 1 [sym_kInherited];
     AGroup 14979 1 [sym_kString]; AGroup 3 2 syms_5; AGroup 14957 2 syms_6;
     AGroup 14961 2 syms_7; AGroup 14963 2 syms_8; AGroup 14965 2 syms_9; AGroup 14967 2 syms_10;
     AGroup 14973 2 syms_11; SGroup 7196 2 syms_12; SGroup 6178 3 syms_13; SGroup 7045 4 syms_14;
     AGroup 14969 5 syms_15; SGroup 7086 14 syms_17]);
   (146983, 21, [AGroup 5 1 [sym_ppDirective]; AGroup 14953 1 [anon_sym_LBRACK];
     AGroup 14955 1 [anon_sym_LPAREN]; AGroup 14959 1 [anon_sym_POUND]; AGroup 14967 1 [sym_kAt];
     AGroup 14971 1 [sym_kSpecialize]; AGroup 14975 1 [sym_kIf]; AGroup 14977 1 [sym_kInherited];
     AGroup 14979 1 [sym_kString]; AGroup 18173 1 [sym_kNot]; AGroup 3 2 syms_5;
     AGroup 14957 2 syms_6; AGroup 14961 2 syms_7; AGroup 14963 2 syms_8; AGroup 14965 2 syms_9;
     AGroup 14973 2 syms_11; SGroup 7196 2 syms_12; SGroup 6178 3 syms_13; SGroup 7045 4 syms_14;
     AGroup 14969 5 syms_15; SGroup 7086 14 syms_17]);
   (147076, 20, [AGroup 5 1 [sym_ppDirective]; AGroup 14953 1 [anon_sym_LBRACK];
     AGroup 14955 1 [anon_sym_LPAREN]; AGroup 14959 1 [anon_sym_POUND];
     AGroup 14971 1 [sym_kSpecialize]; AGroup 14975 1 [sym_kIf]; AGroup 14977 1 [sym_kInherited];
     AGroup 14979 1 [sym_kString]; AGroup 3 2 syms_5; AGroup 14957 2 syms_6;
     AGroup 14961 2 syms_7; AGroup 14963 2 syms_8; AGroup 14965 2 syms_9; AGroup 14967 2 syms_10;
     AGroup 14973 2 syms_11; SGroup 7196 2 syms_12; SGroup 6178 3 syms_13; SGroup 7075 4 syms_14;
     AGroup 14969 5 syms_15; SGroup 7086 14 syms_17]);
   (147167, 20, [AGroup 5 1 [sym_ppDirective]; AGroup 14953 1 [anon_sym_LBRACK];
     AGroup 14955 1 [anon_sym_LPAREN]; AGroup 14959 1 [anon_sym_POUND];
     AGroup 14971 1 [sym_kSpecialize]; AGroup 14977 1 [sym_kInherited];
     AGroup 14979 1 [sym_kString]; AGroup 15755 1 [sym_kIf]; AGroup 3 2 syms_5;
     AGroup 14957 2 syms_6; AGroup 14961 2 syms_7; AGroup 14963 2 syms_8; AGroup 14973 2 syms_11;
     AGroup 15747 2 syms_9; AGroup 15749 2 syms_10; SGroup 7196 2 syms_12; SGroup 6178 3 syms_13;
     SGroup 10327 4 syms_14; AGroup 18175 5 syms_15; SGroup 7051 14 syms_17]);
   (147258, 31, [AGroup 5 1 [sym_ppDirective]; AGroup 13347 1 [anon_sym_LBRACK];
     AGroup 13351 1 [aux_sym_ppUsesBlock_token1]; AGroup 13365 1 [sym_identifier];
     AGroup 13367 1 [sym_kGeneric]; AGroup 13369 1 [sym_kOperator]; AGroup 13373 1 [sym_kStrict];
     AGroup 13377 1 [sym_kCase]; AGroup 13379 1 [sym_kClass]; AGroup 13391 1 [sym_kProperty];
     AGroup 13395 1 [sym_kType]; AGroup 18177 1 [anon_sym_SEMI]; AGroup 18179 1 [sym_kEnd];
     SGroup 2 1 [sym__ppIf]; SGroup 6354 1 [sym__visibility]; SGroup 9779 1 [sym_ppBlock];
     SGroup 9835 1 [sym__declOperator]; SGroup 10247 1 [sym__declProc];
     SGroup 10617 1 [sym_rttiAttributes]; SGroup 10730 1 [aux_sym_rttiAttributes_repeat2];
     SGroup 13987 1 [aux_sym_genericArg_repeat1]; SGroup 14434 1 [sym_declVariant];
     SGroup 14881 1 [sym__declClass]; AGroup 3 2 syms_5; AGroup 13381 2 syms_65;
     AGroup 13393 2 syms_66; SGroup 5685 2 syms_68; SGroup 10490 3 syms_69;
     AGroup 13383 4 syms_3; AGroup 13371 6 syms_70; SGroup 6150 6 syms_71]);
   (147371, 20, [AGroup 5 1 [sym_ppDirective]; AGroup 14953 1 [anon_sym_LBRACK];
     AGroup 14955 1 [anon_sym_LPAREN]; AGroup 14959 1 [anon_sym_POUND];
     AGroup 14971 1 [sym_kSpecialize]; AGroup 14975 1 [sym_kIf]; AGroup 14977 1 [sym_kInherited];
     AGroup 14979 1 [sym_kString]; AGroup 3 2 syms_5; AGroup 14957 2 syms_6;
     AGroup 14961 2 syms_7; AGroup 14963 2 syms_8; AGroup 14965 2 syms_9; AGroup 14967 2 syms_10;
     AGroup 14973 2 syms_11; SGroup 7196 2 syms_12; SGroup 6178 3 syms_13; SGroup 7055 4 syms_14;
     AGroup 14969 5 syms_15; SGroup 7086 14 syms_17]);
   (147462, 20, [AGroup 5 1 [sym_ppDirective]; AGroup 15761 1 [anon_sym_LBRACK];
     AGroup 15763 1 [anon_sym_LPAREN]; AGroup 15767 1 [anon_sym_POUND];
     AGroup 15781 1 [sym_kSpecialize]; AGroup 15787 1 [sym_kInherited]; AGroup 16229 1 [sym_kIf];
     AGroup 17864 1 [sym_kString]; AGroup 3 2 syms_5; AGroup 15765 2 syms_6;
     AGroup 15769 2 syms_7; AGroup 15771 2 syms_8; AGroup 15783 2 syms_11; AGroup 16221 2 syms_9;
     AGroup 16223 2 syms_10; SGroup 9180 2 syms_12; SGroup 7467 3 syms_13;
     SGroup 10118 4 syms_14; AGroup 16225 5 syms_15; SGroup 9076 14 syms_17]);
   (147553, 20, [AGroup 5 1 [sym_ppDirective]; AGroup 14953 1 [anon_sym_LBRACK];
     AGroup 14955 1 [anon_sym_LPAREN]; AGroup 14959 1 [anon_sym_POUND];
     AGroup 14971 1 [sym_kSpecialize]; AGroup 14975 1 [sym_kIf]; AGroup 14977 1 [sym_kInherited];
     AGroup 14979 1 [sym_kString]; AGroup 3 2 syms_5; AGroup 14957 2 syms_6;
     AGroup 14961 2 syms_7; AGroup 14963 2 syms_8; AGroup 14965 2 syms_9; AGroup 14967 2 syms_10;
     AGroup 14973 2 syms_11; SGroup 7196 2 syms_12; SGroup 6178 3 syms_13; SGroup 7089 4 syms_14;
     AGroup 14969 5 syms_15; SGroup 7086 14 syms_17]);
   (147644, 20, [AGroup 5 1 [sym_ppDirective]; AGroup 16673 1 [anon_sym_LBRACK];
     AGroup 16675 1 [anon_sym_LPAREN]; AGroup 16679 1 [anon_sym_POUND];
     AGroup 16693 1 [sym_kSpecialize]; AGroup 16697 1 [sym_kIf]; AGroup 16699 1 [sym_kInherited];
     AGroup 17272 1 [sym_kString]; AGroup 3 2 syms_5; AGroup 16677 2 syms_6;
     AGroup 16681 2 syms_7; AGroup 16683 2 syms_8; AGroup 16685 2 syms_9; AGroup 16687 2 syms_10;
     AGroup 16695 2 syms_11; SGroup 7694 2 syms_12; SGroup 6650 3 syms_13; SGroup 7376 4 syms_14;
     AGroup 16689 5 syms_15; SGroup 7401 14 syms_17]);
   (147735, 20, [AGroup 5 1 [sym_ppDirective]; AGroup 16673 1 [anon_sym_LBRACK];
     AGroup 16675 1 [anon_sym_LPAREN]; AGroup 16679 1 [anon_sym_POUND];
     AGroup 16693 1 [sym_kSpecialize]; AGroup 16697 1 [sym_kIf]; AGroup 16699 1 [sym_kInherited];
     AGroup 17272 1 [sym_kString]; AGroup 3 2 syms_5; AGroup 16677 2 syms_6;
     AGroup 16681 2 syms_7; AGroup 16683 2 syms_8; AGroup 16685 2 syms_9; AGroup 16687 2 syms_10;
     AGroup 16695 2 syms_11; SGroup 7694 2 syms_12; SGroup 6650 3 syms_13; SGroup 7406 4 syms_14;
     AGroup 16689 5 syms_15; SGroup 7401 14 syms_17]);
   (147826, 20, [AGroup 5 1 [sym_ppDirective]; AGroup 16673 1 [anon_sym_LBRACK];
     AGroup 16675 1 [anon_sym_LPAREN]; AGroup 16679 1 [anon_sym_POUND];
     AGroup 16693 1 [sym_kSpecialize]; AGroup 16697 1 [sym_kIf]; AGroup 16699 1 [sym_kInherited];
     AGroup 17272 1 [sym_kString]; AGroup 3 2 syms_5; AGroup 16677 2 syms_6;
     AGroup 16681 2 syms_7; AGroup 16683 2 syms_8; AGroup 16685 2 syms_9; AGroup 16687 2 syms_10;
     AGroup 16695 2 syms_11; SGroup 7694 2 syms_12; SGroup 6650 3 syms_13; SGroup 7407 4 syms_14;
     AGroup 16689 5 syms_15; SGroup 7401 14 syms_17]);
   (147917, 20, [AGroup 5 1 [sym_ppDirective]; AGroup 16673 1 [anon_sym_LBRACK];
     AGroup 16675 1 [anon_sym_LPAREN]; AGroup 16679 1 [anon_sym_POUND];
     AGroup 16693 1 [sym_kSpecialize]; AGroup 16697 1 [sym_kIf]; AGroup 16699 1 [sym_kInherited];
     AGroup 17272 1 [sym_kString]; AGroup 3 2 syms_5; AGroup 16677 2 syms_6;
     AGroup 16681 2 syms_7; AGroup 16683 2 syms_8; AGroup 16685 2 syms_9; AGroup 16687 2 syms_10;
     AGroup 16695 2 syms_11; SGroup 7694 2 syms_12; SGroup 6650 3 syms_13; SGroup 7408 4 syms_14;
     AGroup 16689 5 syms_15; SGroup 7401 14 syms_17]);
   (148008, 21, [AGroup 5 1 [sym_ppDirective]; AGroup 16673 1 [anon_sym_LBRACK];
     AGroup 16675 1 [anon_sym_LPAREN]; AGroup 16679 1 [anon_sym_POUND]; AGroup 16687 1 [sym_kAt];
     AGroup 16693 1 [sym_kSpecialize]; AGroup 16697 1 [sym_kIf]; AGroup 16699 1 [sym_kInherited];
     AGroup 17272 1 [sym_kString]; AGroup 18181 1 [sym_kNot]; AGroup 3 2 syms_5;
     AGroup 16677 2 syms_6; AGroup 16681 2 syms_7; AGroup 16683 2 syms_8; AGroup 16685 2 syms_9;
     AGroup 16695 2 syms_11; SGroup 7694 2 syms_12; SGroup 6650 3 syms_13; SGroup 7408 4 syms_14;
     AGroup 16689 5 syms_15; SGroup 7401 14 syms_17]);
   (148101, 20, [AGroup 5 1 [sym_ppDirective]; AGroup 16673 1 [anon_sym_LBRACK];
     AGroup 16675 1 [anon_sym_LPAREN]; AGroup 16679 1 [anon_sym_POUND];
     AGroup 16693 1 [sym_kSpecialize]; AGroup 16697 1 [sym_kIf]; AGroup 16699 1 [sym_kInherited];
     AGroup 17272 1 [sym_kString]; AGroup 3 2 syms_5; AGroup 16677 2 syms_6;
     AGroup 16681 2 syms_7; AGroup 16683 2 syms_8; AGroup 16685 2 syms_9; AGroup 16687 2 syms_10;
     AGroup 16695 2 syms_11; SGroup 7694 2 syms_12; SGroup 6650 3 syms_13; SGroup 7409 4 syms_14;
     AGroup 16689 5 syms_15; SGroup 7401 14 syms_17]);
   (148192, 20, [AGroup 5 1 [sym_ppDirective]; AGroup 47 1 [anon_sym_LPAREN]; AGroup 51 1 [anon_sym_POUND];
     AGroup 73 1 [sym_kSpecialize]; AGroup 105 1 [sym_kInherited]; AGroup 117 1 [sym_kString];
     AGroup 11060 1 [anon_sym_LBRACK]; AGroup 15829 1 [sym_kIf]; AGroup 3 2 syms_5;
     AGroup 49 2 syms_6; AGroup 53 2 syms_7; AGroup 55 2 syms_8; AGroup 61 2 syms_9;
     AGroup 63 2 syms_10; AGroup 11080 2 syms_11; SGroup 7888 2 syms_12; SGroup 6994 3 syms_13;
     SGroup 7738 4 syms_14; AGroup 65 5 syms_15; SGroup 7765 14 syms_17]);
   (148283, 20, [AGroup 5 1 [sym_ppDirective]; AGroup 15755 1 [sym_kIf]; AGroup 16673 1 [anon_sym_LBRACK];
     AGroup 16675 1 [anon_sym_LPAREN]; AGroup 16679 1 [anon_sym_POUND];
     AGroup 16693 1 [sym_kSpecialize]; AGroup 16699 1 [sym_kInherited];
     AGroup 17272 1 [sym_kString]; AGroup 3 2 syms_5; AGroup 15747 2 syms_9;
     AGroup 15749 2 syms_10; AGroup 16677 2 syms_6; AGroup 16681 2 syms_7; AGroup 16683 2 syms_8;
     AGroup 16695 2 syms_11; SGroup 7694 2 syms_12; SGroup 6650 3 syms_13;
     SGroup 10337 4 syms_14; AGroup 18183 5 syms_15; SGroup 7410 14 syms_17]);
   (148374, 20, [AGroup 5 1 [sym_ppDirective]; AGroup 15761 1 [anon_sym_LBRACK];
     AGroup 15763 1 [anon_sym_LPAREN]; AGroup 15767 1 [anon_sym_POUND];
     AGroup 15781 1 [sym_kSpecialize]; AGroup 15787 1 [sym_kInherited]; AGroup 16229 1 [sym_kIf];
     AGroup 17864 1 [sym_kString]; AGroup 3 2 syms_5; AGroup 15765 2 syms_6;
     AGroup 15769 2 syms_7; AGroup 15771 2 syms_8; AGroup 15783 2 syms_11; AGroup 16221 2 syms_9;
     AGroup 16223 2 syms_10; SGroup 9180 2 syms_12; SGroup 7467 3 syms_13; SGroup 9309 4 syms_14;
     AGroup 16225 5 syms_15; SGroup 9076 14 syms_17]);
   (148465, 20, [AGroup 5 1 [sym_ppDirective]; AGroup 16673 1 [anon_sym_LBRACK];
     AGroup 16675 1 [anon_sym_LPAREN]; AGroup 16679 1 [anon_sym_POUND];
     AGroup 16693 1 [sym_kSpecialize]; AGroup 16697 1 [sym_kIf]; AGroup 16699 1 [sym_kInherited];
     AGroup 17272 1 [sym_kString]; AGroup 3 2 syms_5; AGroup 16677 2 syms_6;
     AGroup 16681 2 syms_7; AGroup 16683 2 syms_8; AGroup 16685 2 syms_9; AGroup 16687 2 syms_10;
     AGroup 16695 2 syms_11; SGroup 7694 2 syms_12; SGroup 6650 3 syms_13; SGroup 7411 4 syms_14;
     AGroup 16689 5 syms_15; SGroup 7401 14 syms_17]);
   (148556, 20, [AGroup 5 1 [sym_ppDirective]; AGroup 16673 1 [anon_sym_LBRACK];
     AGroup 16675 1 [anon_sym_LPAREN]; AGroup 16679 1 [anon_sym_POUND];
     AGroup 16693 1 [sym_kSpecialize]; AGroup 16697 1 [sym_kIf]; AGroup 16699 1 [sym_kInherited];
     AGroup 17272 1 [sym_kString]; AGroup 3 2 syms_5; AGroup 16677 2 syms_6;
     AGroup 16681 2 syms_7; AGroup 16683 2 syms_8; AGroup 16685 2 syms_9; AGroup 16687 2 syms_10;
     AGroup 16695 2 syms_11; SGroup 7694 2 syms_12; SGroup 6650 3 syms_13; SGroup 7412 4 syms_14;
     AGroup 16689 5 syms_15; SGroup 7401 14 syms_17]);
   (148647, 4, [AGroup 5 1 [sym_ppDirective]; AGroup 3 2 syms_5; AGroup 15355 4 syms_25;
     AGroup 15353 43 syms_147]);
   (148706, 20, [AGroup 5 1 [sym_ppDirective]; AGroup 16071 1 [anon_sym_LBRACK];
     AGroup 16073 1 [anon_sym_LPAREN]; AGroup 16077 1 [anon_sym_POUND];
     AGroup 16091 1 [sym_kSpecialize]; AGroup 16095 1 [sym_kIf]; AGroup 16097 1 [sym_kInherited];
     AGroup 17710 1 [sym_kString]; AGroup 3 2 syms_5; AGroup 16075 2 syms_6;
     AGroup 16079 2 syms_7; AGroup 16081 2 syms_8; AGroup 16083 2 syms_9; AGroup 16085 2 syms_10;
     AGroup 16093 2 syms_11; SGroup 8930 2 syms_12; SGroup 7257 3 syms_13; SGroup 8334 4 syms_14;
     AGroup 16087 5 syms_15; SGroup 8310 14 syms_17]);
   (148797, 20, [AGroup 5 1 [sym_ppDirective]; AGroup 16569 1 [anon_sym_LBRACK];
     AGroup 16571 1 [anon_sym_LPAREN]; AGroup 16575 1 [anon_sym_POUND];
     AGroup 16589 1 [sym_kSpecialize]; AGroup 16593 1 [sym_kIf]; AGroup 16595 1 [sym_kInherited];
     AGroup 17788 1 [sym_kString]; AGroup 3 2 syms_5; AGroup 16573 2 syms_6;
     AGroup 16577 2 syms_7; AGroup 16579 2 syms_8; AGroup 16581 2 syms_9; AGroup 16583 2 syms_10;
     AGroup 16591 2 syms_11; SGroup 8889 2 syms_12; SGroup 7286 3 syms_13; SGroup 8279 4 syms_14;
     AGroup 16585 5 syms_15; SGroup 8506 14 syms_17]);
   (148888, 20, [AGroup 5 1 [sym_ppDirective]; AGroup 15711 1 [anon_sym_LBRACK];
     AGroup 15713 1 [anon_sym_LPAREN]; AGroup 15717 1 [anon_sym_POUND];
     AGroup 15731 1 [sym_kSpecialize]; AGroup 15735 1 [sym_kIf]; AGroup 15737 1 [sym_kInherited];
     AGroup 17180 1 [sym_kString]; AGroup 3 2 syms_5; AGroup 15715 2 syms_6;
     AGroup 15719 2 syms_7; AGroup 15721 2 syms_8; AGroup 15723 2 syms_9; AGroup 15725 2 syms_10;
     AGroup 15733 2 syms_11; SGroup 9361 2 syms_12; SGroup 7548 3 syms_13; SGroup 9626 4 syms_14;
     AGroup 15727 5 syms_15; SGroup 8938 14 syms_17]);
   (148979, 20, [AGroup 5 1 [sym_ppDirective]; AGroup 16569 1 [anon_sym_LBRACK];
     AGroup 16571 1 [anon_sym_LPAREN]; AGroup 16575 1 [anon_sym_POUND];
     AGroup 16589 1 [sym_kSpecialize]; AGroup 16593 1 [sym_kIf]; AGroup 16595 1 [sym_kInherited];
     AGroup 17788 1 [sym_kString]; AGroup 3 2 syms_5; AGroup 16573 2 syms_6;
     AGroup 16577 2 syms_7; AGroup 16579 2 syms_8; AGroup 16581 2 syms_9; AGroup 16583 2 syms_10;
     AGroup 16591 2 syms_11; SGroup 8889 2 syms_12; SGroup 7286 3 syms_13; SGroup 8280 4 syms_14;
     AGroup 16585 5 syms_15; SGroup 8506 14 syms_17]);
   (149070, 20, [AGroup 5 1 [sym_ppDirective]; AGroup 15647 1 [anon_sym_LBRACK];
     AGroup 15653 1 [anon_sym_POUND]; AGroup 15667 1 [sym_kSpecialize];
     AGroup 15673 1 [sym_kInherited]; AGroup 15675 1 [sym_kString];
     AGroup 15745 1 [anon_sym_LPAREN]; AGroup 15755 1 [sym_kIf]; AGroup 3 2 syms_5;
     AGroup 15651 2 syms_6; AGroup 15655 2 syms_7; AGroup 15657 2 syms_8; AGroup 15669 2 syms_11;
     AGroup 15747 2 syms_9; AGroup 15749 2 syms_10; SGroup 8129 2 syms_12; SGroup 7100 3 syms_13;
     SGroup 9857 4 syms_14; AGroup 15751 5 syms_15; SGroup 8464 14 syms_17]);
   (149161, 20, [AGroup 5 1 [sym_ppDirective]; AGroup 15011 1 [anon_sym_LBRACK];
     AGroup 15013 1 [anon_sym_LPAREN]; AGroup 15017 1 [anon_sym_POUND];
     AGroup 15029 1 [sym_kSpecialize]; AGroup 15035 1 [sym_kIf]; AGroup 15037 1 [sym_kInherited];
     AGroup 15039 1 [sym_kString]; AGroup 3 2 syms_5; AGroup 15015 2 syms_6;
     AGroup 15019 2 syms_7; AGroup 15021 2 syms_8; AGroup 15023 2 syms_9; AGroup 15025 2 syms_10;
     AGroup 15033 2 syms_11; SGroup 8466 2 syms_12; SGroup 7201 3 syms_13; SGroup 7961 4 syms_14;
     AGroup 15027 5 syms_15; SGroup 7990 14 syms_17]);
   (149252, 20, [AGroup 5 1 [sym_ppDirective]; AGroup 16569 1 [anon_sym_LBRACK];
     AGroup 16571 1 [anon_sym_LPAREN]; AGroup 16575 1 [anon_sym_POUND];
     AGroup 16589 1 [sym_kSpecialize]; AGroup 16593 1 [sym_kIf]; AGroup 16595 1 [sym_kInherited];
     AGroup 17788 1 [sym_kString]; AGroup 3 2 syms_5; AGroup 16573 2 syms_6;
     AGroup 16577 2 syms_7; AGroup 16579 2 syms_8; AGroup 16581 2 syms_9; AGroup 16583 2 syms_10;
     AGroup 16591 2 syms_11; SGroup 8889 2 syms_12; SGroup 7286 3 syms_13; SGroup 8476 4 syms_14;
     AGroup 16585 5 syms_15; SGroup 8506 14 syms_17]);
   (149343, 20, [AGroup 5 1 [sym_ppDirective]; AGroup 15677 1 [anon_sym_LBRACK];
     AGroup 15679 1 [anon_sym_LPAREN]; AGroup 15683 1 [anon_sym_POUND];
     AGroup 15697 1 [sym_kSpecialize]; AGroup 15701 1 [sym_kIf]; AGroup 15703 1 [sym_kInherited];
     AGroup 17206 1 [sym_kString]; AGroup 3 2 syms_5; AGroup 15681 2 syms_6;
     AGroup 15685 2 syms_7; AGroup 15687 2 syms_8; AGroup 15689 2 syms_9; AGroup 15691 2 syms_10;
     AGroup 15699 2 syms_11; SGroup 8792 2 syms_12; SGroup 7321 3 syms_13; SGroup 9398 4 syms_14;
     AGroup 15693 5 syms_15; SGroup 8443 14 syms_17]);
   (149434, 20, [AGroup 5 1 [sym_ppDirective]; AGroup 16071 1 [anon_sym_LBRACK];
     AGroup 16073 1 [anon_sym_LPAREN]; AGroup 16077 1 [anon_sym_POUND];
     AGroup 16091 1 [sym_kSpecialize]; AGroup 16095 1 [sym_kIf]; AGroup 16097 1 [sym_kInherited];
     AGroup 17710 1 [sym_kString]; AGroup 3 2 syms_5; AGroup 16075 2 syms_6;
     AGroup 16079 2 syms_7; AGroup 16081 2 syms_8; AGroup 16083 2 syms_9; AGroup 16085 2 syms_10;
     AGroup 16093 2 syms_11; SGroup 8930 2 syms_12; SGroup 7257 3 syms_13; SGroup 8335 4 syms_14;
     AGroup 16087 5 syms_15; SGroup 8310 14 syms_17]);
   (149525, 20, [AGroup 5 1 [sym_ppDirective]; AGroup 15677 1 [anon_sym_LBRACK];
     AGroup 15679 1 [anon_sym_LPAREN]; AGroup 15683 1 [anon_sym_POUND];
     AGroup 15697 1 [sym_kSpecialize]; AGroup 15701 1 [sym_kIf]; AGroup 15703 1 [sym_kInherited];
     AGroup 17206 1 [sym_kString]; AGroup 3 2 syms_5; AGroup 15681 2 syms_6;
     AGroup 15685 2 syms_7; AGroup 15687 2 syms_8; AGroup 15689 2 syms_9; AGroup 15691 2 syms_10;
     AGroup 15699 2 syms_11; SGroup 8792 2 syms_12; SGroup 7321 3 syms_13; SGroup 9402 4 syms_14;
     AGroup 15693 5 syms_15; SGroup 8443 14 syms_17]);
   (149616, 5, [AGroup 5 1 [sym_ppDirective]; AGroup 3 2 syms_5; AGroup 15473 5 syms_148;
     AGroup 15403 18 syms_36; AGroup 15471 24 syms_149]);
   (149677, 21, [AGroup 5 1 [sym_ppDirective]; AGroup 16569 1 [anon_sym_LBRACK];
     AGroup 16571 1 [anon_sym_LPAREN]; AGroup 16575 1 [anon_sym_POUND]; AGroup 16583 1 [sym_kAt];
     AGroup 16589 1 [sym_kSpecialize]; AGroup 16593 1 [sym_kIf]; AGroup 16595 1 [sym_kInherited];
     AGroup 17788 1 [sym_kString]; AGroup 18185 1 [sym_kNot]; AGroup 3 2 syms_5;
     AGroup 16573 2 syms_6; AGroup 16577 2 syms_7; AGroup 16579 2 syms_8; AGroup 16581 2 syms_9;
     AGroup 16591 2 syms_11; SGroup 8889 2 syms_12; SGroup 7286 3 syms_13; SGroup 8476 4 syms_14;
     AGroup 16585 5 syms_15; SGroup 8506 14 syms_17]);
   (149770, 20, [AGroup 5 1 [sym_ppDirective]; AGroup 15011 1 [anon_sym_LBRACK];
     AGroup 15013 1 [anon_sym_LPAREN]; AGroup 15017 1 [anon_sym_POUND];
     AGroup 15029 1 [sym_kSpecialize]; AGroup 15035 1 [sym_kIf]; AGroup 15037 1 [sym_kInherited];
     AGroup 15039 1 [sym_kString]; AGroup 3 2 syms_5; AGroup 15015 2 syms_6;
     AGroup 15019 2 syms_7; AGroup 15021 2 syms_8; AGroup 15023 2 syms_9; AGroup 15025 2 syms_10;
     AGroup 15033 2 syms_11; SGroup 8466 2 syms_12; SGroup 7201 3 syms_13; SGroup 8011 4 syms_14;
     AGroup 15027 5 syms_15; SGroup 7990 14 syms_17]);
   (149861, 20, [AGroup 5 1 [sym_ppDirective]; AGroup 15711 1 [anon_sym_LBRACK];
     AGroup 15713 1 [anon_sym_LPAREN]; AGroup 15717 1 [anon_sym_POUND];
     AGroup 15731 1 [sym_kSpecialize]; AGroup 15735 1 [sym_kIf]; AGroup 15737 1 [sym_kInherited];
     AGroup 17180 1 [sym_kString]; AGroup 3 2 syms_5; AGroup 15715 2 syms_6;
     AGroup 15719 2 syms_7; AGroup 15721 2 syms_8; AGroup 15723 2 syms_9; AGroup 15725 2 syms_10;
     AGroup 15733 2 syms_11; SGroup 9361 2 syms_12; SGroup 7548 3 syms_13; SGroup 9657 4 syms_14;
     AGroup 15727 5 syms_15; SGroup 8938 14 syms_17]);
   (149952, 20, [AGroup 5 1 [sym_ppDirective]; AGroup 15711 1 [anon_sym_LBRACK];
     AGroup 15713 1 [anon_sym_LPAREN]; AGroup 15717 1 [anon_sym_POUND];
     AGroup 15731 1 [sym_kSpecialize]; AGroup 15735 1 [sym_kIf]; AGroup 15737 1 [sym_kInherited];
     AGroup 17180 1 [sym_kString]; AGroup 3 2 syms_5; AGroup 15715 2 syms_6;
     AGroup 15719 2 syms_7; AGroup 15721 2 syms_8; AGroup 15723 2 syms_9; AGroup 15725 2 syms_10;
     AGroup 15733 2 syms_11; SGroup 9361 2 syms_12; SGroup 7548 3 syms_13; SGroup 9751 4 syms_14;
     AGroup 15727 5 syms_15; SGroup 8938 14 syms_17]);
   (150043, 20, [AGroup 5 1 [sym_ppDirective]; AGroup 15011 1 [anon_sym_LBRACK];
     AGroup 15013 1 [anon_sym_LPAREN]; AGroup 15017 1 [anon_sym_POUND];
     AGroup 15029 1 [sym_kSpecialize]; AGroup 15035 1 [sym_kIf]; AGroup 15037 1 [sym_kInherited];
     AGroup 15039 1 [sym_kString]; AGroup 3 2 syms_5; AGroup 15015 2 syms_6;
     AGroup 15019 2 syms_7; AGroup 15021 2 syms_8; AGroup 15023 2 syms_9; AGroup 15025 2 syms_10;
     AGroup 15033 2 syms_11; SGroup 8466 2 syms_12; SGroup 7201 3 syms_13; SGroup 8012 4 syms_14;
     AGroup 15027 5 syms_15; SGroup 7990 14 syms_17]);
   (150134, 20, [AGroup 5 1 [sym_ppDirective]; AGroup 15011 1 [anon_sym_LBRACK];
     AGroup 15013 1 [anon_sym_LPAREN]; AGroup 15017 1 [anon_sym_POUND];
     AGroup 15029 1 [sym_kSpecialize]; AGroup 15035 1 [sym_kIf]; AGroup 15037 1 [sym_kInherited];
     AGroup 15039 1 [sym_kString]; AGroup 3 2 syms_5; AGroup 15015 2 syms_6;
     AGroup 15019 2 syms_7; AGroup 15021 2 syms_8; AGroup 15023 2 syms_9; AGroup 15025 2 syms_10;
     AGroup 15033 2 syms_11; SGroup 8466 2 syms_12; SGroup 7201 3 syms_13; SGroup 8013 4 syms_14;
     AGroup 15027 5 syms_15; SGroup 7990 14 syms_17]);
   (150225, 8, [AGroup 5 1 [sym_ppDirective]; AGroup 3 2 syms_5; SGroup 8129 2 syms_12;
     SGroup 7100 3 syms_13; SGroup 9533 4 syms_14; AGroup 18189 5 syms_150;
     SGroup 8464 14 syms_17; AGroup 18187 19 syms_151])
  ].

Definition small_part2 : list small_run :=
  small_runs_3459
  ++ small_runs_3559
  ++ small_runs_3659
  ++ small_runs_3759
  ++ small_runs_3859
  ++ small_runs_3959
  ++ small_runs_4059
  ++ small_runs_4159
  ++ small_runs_4259.
