(* ===== verification/SmallTable3.v ===== *)
(** * The compressed parse table of [parser.c], states 4359 to 5258

    The record of each small state in [ts_small_parse_table], as the source
    writes it: its index in the array, the number of its groups, and the groups
    in their order, each with its value, the number of its symbols and the
    symbols. *)

From S2P Require Import Prelude.
From S2P Require Import Symbols.
From S2P Require Import ParseTypes.
From S2P Require Import SmallSymbols.

(** States 4359 to 4458. *)
Definition small_runs_4359 : list small_run :=
  [
   (150292, 21, [AGroup 5 1 [sym_ppDirective]; AGroup 15011 1 [anon_sym_LBRACK];
     AGroup 15013 1 [anon_sym_LPAREN]; AGroup 15017 1 [anon_sym_POUND]; AGroup 15025 1 [sym_kAt];
     AGroup 15029 1 [sym_kSpecialize]; AGroup 15035 1 [sym_kIf]; AGroup 15037 1 [sym_kInherited];
     AGroup 15039 1 [sym_kString]; AGroup 18191 1 [sym_kNot]; AGroup 3 2 syms_5;
     AGroup 15015 2 syms_6; AGroup 15019 2 syms_7; AGroup 15021 2 syms_8; AGroup 15023 2 syms_9;
     AGroup 15033 2 syms_11; SGroup 8466 2 syms_12; SGroup 7201 3 syms_13; SGroup 8013 4 syms_14;
     AGroup 15027 5 syms_15; SGroup 7990 14 syms_17]);
   (150385, 20, [AGroup 5 1 [sym_ppDirective]; AGroup 15011 1 [anon_sym_LBRACK];
     AGroup 15013 1 [anon_sym_LPAREN]; AGroup 15017 1 [anon_sym_POUND];
     AGroup 15029 1 [sym_kSpecialize]; AGroup 15035 1 [sym_kIf]; AGroup 15037 1 [sym_kInherited];
     AGroup 15039 1 [sym_kString]; AGroup 3 2 syms_5; AGroup 15015 2 syms_6;
     AGroup 15019 2 syms_7; AGroup 15021 2 syms_8; AGroup 15023 2 syms_9; AGroup 15025 2 syms_10;
     AGroup 15033 2 syms_11; SGroup 8466 2 syms_12; SGroup 7201 3 syms_13; SGroup 8014 4 syms_14;
     AGroup 15027 5 syms_15; SGroup 7990 14 syms_17]);
   (150476, 20, [AGroup 5 1 [sym_ppDirective]; AGroup 16569 1 [anon_sym_LBRACK];
     AGroup 16571 1 [anon_sym_LPAREN]; AGroup 16575 1 [anon_sym_POUND];
     AGroup 16589 1 [sym_kSpecialize]; AGroup 16593 1 [sym_kIf]; AGroup 16595 1 [sym_kInherited];
     AGroup 17788 1 [sym_kString]; AGroup 3 2 syms_5; AGroup 16573 2 syms_6;
     AGroup 16577 2 syms_7; AGroup 16579 2 syms_8; AGroup 16581 2 syms_9; AGroup 16583 2 syms_10;
     AGroup 16591 2 syms_11; SGroup 8889 2 syms_12; SGroup 7286 3 syms_13; SGroup 8511 4 syms_14;
     AGroup 16585 5 syms_15; SGroup 8506 14 syms_17]);
   (150567, 20, [AGroup 5 1 [sym_ppDirective]; AGroup 15677 1 [anon_sym_LBRACK];
     AGroup 15679 1 [anon_sym_LPAREN]; AGroup 15683 1 [anon_sym_POUND];
     AGroup 15697 1 [sym_kSpecialize]; AGroup 15701 1 [sym_kIf]; AGroup 15703 1 [sym_kInherited];
     AGroup 17206 1 [sym_kString]; AGroup 3 2 syms_5; AGroup 15681 2 syms_6;
     AGroup 15685 2 syms_7; AGroup 15687 2 syms_8; AGroup 15689 2 syms_9; AGroup 15691 2 syms_10;
     AGroup 15699 2 syms_11; SGroup 8792 2 syms_12; SGroup 7321 3 syms_13; SGroup 9400 4 syms_14;
     AGroup 15693 5 syms_15; SGroup 8443 14 syms_17]);
   (150658, 20, [AGroup 5 1 [sym_ppDirective]; AGroup 15011 1 [anon_sym_LBRACK];
     AGroup 15013 1 [anon_sym_LPAREN]; AGroup 15017 1 [anon_sym_POUND];
     AGroup 15029 1 [sym_kSpecialize]; AGroup 15037 1 [sym_kInherited];
     AGroup 15039 1 [sym_kString]; AGroup 15755 1 [sym_kIf]; AGroup 3 2 syms_5;
     AGroup 15015 2 syms_6; AGroup 15019 2 syms_7; AGroup 15021 2 syms_8; AGroup 15033 2 syms_11;
     AGroup 15747 2 syms_9; AGroup 15749 2 syms_10; SGroup 8466 2 syms_12; SGroup 7201 3 syms_13;
     SGroup 10332 4 syms_14; AGroup 18193 5 syms_15; SGroup 8015 14 syms_17]);
   (150749, 5, [AGroup 5 1 [sym_ppDirective]; AGroup 3 2 syms_5; AGroup 15504 5 syms_148;
     AGroup 15403 18 syms_36; AGroup 15502 24 syms_149]);
   (150810, 5, [AGroup 5 1 [sym_ppDirective]; AGroup 3 2 syms_5; AGroup 15484 5 syms_148;
     AGroup 15403 18 syms_36; AGroup 15482 24 syms_149]);
   (150871, 20, [AGroup 5 1 [sym_ppDirective]; AGroup 15755 1 [sym_kIf]; AGroup 16569 1 [anon_sym_LBRACK];
     AGroup 16571 1 [anon_sym_LPAREN]; AGroup 16575 1 [anon_sym_POUND];
     AGroup 16589 1 [sym_kSpecialize]; AGroup 16595 1 [sym_kInherited];
     AGroup 17788 1 [sym_kString]; AGroup 3 2 syms_5; AGroup 15747 2 syms_9;
     AGroup 15749 2 syms_10; AGroup 16573 2 syms_6; AGroup 16577 2 syms_7; AGroup 16579 2 syms_8;
     AGroup 16591 2 syms_11; SGroup 8889 2 syms_12; SGroup 7286 3 syms_13;
     SGroup 10318 4 syms_14; AGroup 18195 5 syms_15; SGroup 8178 14 syms_17]);
   (150962, 20, [AGroup 5 1 [sym_ppDirective]; AGroup 15011 1 [anon_sym_LBRACK];
     AGroup 15013 1 [anon_sym_LPAREN]; AGroup 15017 1 [anon_sym_POUND];
     AGroup 15029 1 [sym_kSpecialize]; AGroup 15035 1 [sym_kIf]; AGroup 15037 1 [sym_kInherited];
     AGroup 15039 1 [sym_kString]; AGroup 3 2 syms_5; AGroup 15015 2 syms_6;
     AGroup 15019 2 syms_7; AGroup 15021 2 syms_8; AGroup 15023 2 syms_9; AGroup 15025 2 syms_10;
     AGroup 15033 2 syms_11; SGroup 8466 2 syms_12; SGroup 7201 3 syms_13; SGroup 8016 4 syms_14;
     AGroup 15027 5 syms_15; SGroup 7990 14 syms_17]);
   (151053, 5, [AGroup 5 1 [sym_ppDirective]; AGroup 3 2 syms_5; AGroup 15492 5 syms_148;
     AGroup 15403 18 syms_36; AGroup 15490 24 syms_149]);
   (151114, 5, [AGroup 5 1 [sym_ppDirective]; AGroup 3 2 syms_5; AGroup 15401 5 syms_148;
     AGroup 15403 18 syms_36; AGroup 15399 24 syms_149]);
   (151175, 20, [AGroup 5 1 [sym_ppDirective]; AGroup 15647 1 [anon_sym_LBRACK];
     AGroup 15653 1 [anon_sym_POUND]; AGroup 15667 1 [sym_kSpecialize];
     AGroup 15673 1 [sym_kInherited]; AGroup 15675 1 [sym_kString];
     AGroup 15745 1 [anon_sym_LPAREN]; AGroup 16065 1 [sym_kIf]; AGroup 3 2 syms_5;
     AGroup 15651 2 syms_6; AGroup 15655 2 syms_7; AGroup 15657 2 syms_8; AGroup 15669 2 syms_11;
     AGroup 16059 2 syms_9; AGroup 16061 2 syms_10; SGroup 8129 2 syms_12; SGroup 7100 3 syms_13;
     SGroup 7789 4 syms_14; AGroup 16063 5 syms_15; SGroup 7805 14 syms_17]);
   (151266, 20, [AGroup 5 1 [sym_ppDirective]; AGroup 15761 1 [anon_sym_LBRACK];
     AGroup 15763 1 [anon_sym_LPAREN]; AGroup 15767 1 [anon_sym_POUND];
     AGroup 15781 1 [sym_kSpecialize]; AGroup 15787 1 [sym_kInherited]; AGroup 16229 1 [sym_kIf];
     AGroup 17864 1 [sym_kString]; AGroup 3 2 syms_5; AGroup 15765 2 syms_6;
     AGroup 15769 2 syms_7; AGroup 15771 2 syms_8; AGroup 15783 2 syms_11; AGroup 16221 2 syms_9;
     AGroup 16223 2 syms_10; SGroup 9180 2 syms_12; SGroup 7467 3 syms_13;
     SGroup 10127 4 syms_14; AGroup 16225 5 syms_15; SGroup 9076 14 syms_17]);
   (151357, 20, [AGroup 5 1 [sym_ppDirective]; AGroup 15647 1 [anon_sym_LBRACK];
     AGroup 15653 1 [anon_sym_POUND]; AGroup 15667 1 [sym_kSpecialize];
     AGroup 15673 1 [sym_kInherited]; AGroup 15675 1 [sym_kString];
     AGroup 15745 1 [anon_sym_LPAREN]; AGroup 16065 1 [sym_kIf]; AGroup 3 2 syms_5;
     AGroup 15651 2 syms_6; AGroup 15655 2 syms_7; AGroup 15657 2 syms_8; AGroup 15669 2 syms_11;
     AGroup 16059 2 syms_9; AGroup 16061 2 syms_10; SGroup 8129 2 syms_12; SGroup 7100 3 syms_13;
     SGroup 7911 4 syms_14; AGroup 16063 5 syms_15; SGroup 7805 14 syms_17]);
   (151448, 20, [AGroup 5 1 [sym_ppDirective]; AGroup 15647 1 [anon_sym_LBRACK];
     AGroup 15653 1 [anon_sym_POUND]; AGroup 15667 1 [sym_kSpecialize];
     AGroup 15673 1 [sym_kInherited]; AGroup 15675 1 [sym_kString];
     AGroup 15745 1 [anon_sym_LPAREN]; AGroup 16065 1 [sym_kIf]; AGroup 3 2 syms_5;
     AGroup 15651 2 syms_6; AGroup 15655 2 syms_7; AGroup 15657 2 syms_8; AGroup 15669 2 syms_11;
     AGroup 16059 2 syms_9; AGroup 16061 2 syms_10; SGroup 8129 2 syms_12; SGroup 7100 3 syms_13;
     SGroup 7912 4 syms_14; AGroup 16063 5 syms_15; SGroup 7805 14 syms_17]);
   (151539, 21, [AGroup 5 1 [sym_ppDirective]; AGroup 15647 1 [anon_sym_LBRACK];
     AGroup 15653 1 [anon_sym_POUND]; AGroup 15667 1 [sym_kSpecialize];
     AGroup 15673 1 [sym_kInherited]; AGroup 15675 1 [sym_kString];
     AGroup 15745 1 [anon_sym_LPAREN]; AGroup 16061 1 [sym_kAt]; AGroup 16065 1 [sym_kIf];
     AGroup 18197 1 [sym_kNot]; AGroup 3 2 syms_5; AGroup 15651 2 syms_6; AGroup 15655 2 syms_7;
     AGroup 15657 2 syms_8; AGroup 15669 2 syms_11; AGroup 16059 2 syms_9; SGroup 8129 2 syms_12;
     SGroup 7100 3 syms_13; SGroup 7912 4 syms_14; AGroup 16063 5 syms_15; SGroup 7805 14 syms_17]);
   (151632, 20, [AGroup 5 1 [sym_ppDirective]; AGroup 15647 1 [anon_sym_LBRACK];
     AGroup 15653 1 [anon_sym_POUND]; AGroup 15667 1 [sym_kSpecialize];
     AGroup 15673 1 [sym_kInherited]; AGroup 15675 1 [sym_kString];
     AGroup 15745 1 [anon_sym_LPAREN]; AGroup 16065 1 [sym_kIf]; AGroup 3 2 syms_5;
     AGroup 15651 2 syms_6; AGroup 15655 2 syms_7; AGroup 15657 2 syms_8; AGroup 15669 2 syms_11;
     AGroup 16059 2 syms_9; AGroup 16061 2 syms_10; SGroup 8129 2 syms_12; SGroup 7100 3 syms_13;
     SGroup 7915 4 syms_14; AGroup 16063 5 syms_15; SGroup 7805 14 syms_17]);
   (151723, 21, [AGroup 5 1 [sym_ppDirective]; AGroup 16071 1 [anon_sym_LBRACK];
     AGroup 16073 1 [anon_sym_LPAREN]; AGroup 16077 1 [anon_sym_POUND]; AGroup 16085 1 [sym_kAt];
     AGroup 16091 1 [sym_kSpecialize]; AGroup 16095 1 [sym_kIf]; AGroup 16097 1 [sym_kInherited];
     AGroup 17710 1 [sym_kString]; AGroup 18199 1 [sym_kNot]; AGroup 3 2 syms_5;
     AGroup 16075 2 syms_6; AGroup 16079 2 syms_7; AGroup 16081 2 syms_8; AGroup 16083 2 syms_9;
     AGroup 16093 2 syms_11; SGroup 8930 2 syms_12; SGroup 7257 3 syms_13; SGroup 8335 4 syms_14;
     AGroup 16087 5 syms_15; SGroup 8310 14 syms_17]);
   (151816, 20, [AGroup 5 1 [sym_ppDirective]; AGroup 15647 1 [anon_sym_LBRACK];
     AGroup 15653 1 [anon_sym_POUND]; AGroup 15667 1 [sym_kSpecialize];
     AGroup 15673 1 [sym_kInherited]; AGroup 15675 1 [sym_kString];
     AGroup 15745 1 [anon_sym_LPAREN]; AGroup 16065 1 [sym_kIf]; AGroup 3 2 syms_5;
     AGroup 15651 2 syms_6; AGroup 15655 2 syms_7; AGroup 15657 2 syms_8; AGroup 15669 2 syms_11;
     AGroup 16059 2 syms_9; AGroup 16061 2 syms_10; SGroup 8129 2 syms_12; SGroup 7100 3 syms_13;
     SGroup 7918 4 syms_14; AGroup 16063 5 syms_15; SGroup 7805 14 syms_17]);
   (151907, 20, [AGroup 5 1 [sym_ppDirective]; AGroup 15647 1 [anon_sym_LBRACK];
     AGroup 15653 1 [anon_sym_POUND]; AGroup 15667 1 [sym_kSpecialize];
     AGroup 15673 1 [sym_kInherited]; AGroup 15675 1 [sym_kString];
     AGroup 15745 1 [anon_sym_LPAREN]; AGroup 16065 1 [sym_kIf]; AGroup 3 2 syms_5;
     AGroup 15651 2 syms_6; AGroup 15655 2 syms_7; AGroup 15657 2 syms_8; AGroup 15669 2 syms_11;
     AGroup 16059 2 syms_9; AGroup 16061 2 syms_10; SGroup 8129 2 syms_12; SGroup 7100 3 syms_13;
     SGroup 7923 4 syms_14; AGroup 16063 5 syms_15; SGroup 7805 14 syms_17]);
   (151998, 5, [AGroup 5 1 [sym_ppDirective]; AGroup 3 2 syms_5; AGroup 15439 5 syms_148;
     AGroup 15403 18 syms_36; AGroup 15437 24 syms_149]);
   (152059, 5, [AGroup 5 1 [sym_ppDirective]; AGroup 3 2 syms_5; AGroup 15488 5 syms_148;
     AGroup 15403 18 syms_36; AGroup 15486 24 syms_149]);
   (152120, 20, [AGroup 5 1 [sym_ppDirective]; AGroup 15011 1 [anon_sym_LBRACK];
     AGroup 15013 1 [anon_sym_LPAREN]; AGroup 15017 1 [anon_sym_POUND];
     AGroup 15029 1 [sym_kSpecialize]; AGroup 15035 1 [sym_kIf]; AGroup 15037 1 [sym_kInherited];
     AGroup 15039 1 [sym_kString]; AGroup 3 2 syms_5; AGroup 15015 2 syms_6;
     AGroup 15019 2 syms_7; AGroup 15021 2 syms_8; AGroup 15023 2 syms_9; AGroup 15025 2 syms_10;
     AGroup 15033 2 syms_11; SGroup 8466 2 syms_12; SGroup 7201 3 syms_13; SGroup 8017 4 syms_14;
     AGroup 15027 5 syms_15; SGroup 7990 14 syms_17]);
   (152211, 5, [AGroup 5 1 [sym_ppDirective]; AGroup 3 2 syms_5; AGroup 15496 5 syms_148;
     AGroup 15403 18 syms_36; AGroup 15494 24 syms_149]);
   (152272, 20, [AGroup 5 1 [sym_ppDirective]; AGroup 16715 1 [anon_sym_LBRACK];
     AGroup 16717 1 [anon_sym_LPAREN]; AGroup 16721 1 [anon_sym_POUND];
     AGroup 16735 1 [sym_kSpecialize]; AGroup 16739 1 [sym_kIf]; AGroup 16741 1 [sym_kInherited];
     AGroup 18201 1 [sym_kString]; AGroup 3 2 syms_5; AGroup 16719 2 syms_6;
     AGroup 16723 2 syms_7; AGroup 16725 2 syms_8; AGroup 16727 2 syms_9; AGroup 16729 2 syms_10;
     AGroup 16737 2 syms_11; SGroup 7901 2 syms_12; SGroup 7014 3 syms_13; SGroup 8468 4 syms_14;
     AGroup 16731 5 syms_15; SGroup 7757 14 syms_17]);
   (152363, 20, [AGroup 5 1 [sym_ppDirective]; AGroup 16071 1 [anon_sym_LBRACK];
     AGroup 16073 1 [anon_sym_LPAREN]; AGroup 16077 1 [anon_sym_POUND];
     AGroup 16091 1 [sym_kSpecialize]; AGroup 16095 1 [sym_kIf]; AGroup 16097 1 [sym_kInherited];
     AGroup 17710 1 [sym_kString]; AGroup 3 2 syms_5; AGroup 16075 2 syms_6;
     AGroup 16079 2 syms_7; AGroup 16081 2 syms_8; AGroup 16083 2 syms_9; AGroup 16085 2 syms_10;
     AGroup 16093 2 syms_11; SGroup 8930 2 syms_12; SGroup 7257 3 syms_13; SGroup 8351 4 syms_14;
     AGroup 16087 5 syms_15; SGroup 8310 14 syms_17]);
   (152454, 20, [AGroup 5 1 [sym_ppDirective]; AGroup 15865 1 [anon_sym_LBRACK];
     AGroup 15867 1 [anon_sym_LPAREN]; AGroup 15871 1 [anon_sym_POUND];
     AGroup 15885 1 [sym_kSpecialize]; AGroup 15889 1 [sym_kIf]; AGroup 15891 1 [sym_kInherited];
     AGroup 17304 1 [sym_kString]; AGroup 3 2 syms_5; AGroup 15869 2 syms_6;
     AGroup 15873 2 syms_7; AGroup 15875 2 syms_8; AGroup 15877 2 syms_9; AGroup 15879 2 syms_10;
     AGroup 15887 2 syms_11; SGroup 8622 2 syms_12; SGroup 7298 3 syms_13; SGroup 9432 4 syms_14;
     AGroup 15881 5 syms_15; SGroup 8584 14 syms_17]);
   (152545, 20, [AGroup 5 1 [sym_ppDirective]; AGroup 16599 1 [anon_sym_LBRACK];
     AGroup 16601 1 [anon_sym_LPAREN]; AGroup 16605 1 [anon_sym_POUND];
     AGroup 16619 1 [sym_kSpecialize]; AGroup 16623 1 [sym_kIf]; AGroup 16625 1 [sym_kInherited];
     AGroup 17916 1 [sym_kString]; AGroup 3 2 syms_5; AGroup 16603 2 syms_6;
     AGroup 16607 2 syms_7; AGroup 16609 2 syms_8; AGroup 16611 2 syms_9; AGroup 16613 2 syms_10;
     AGroup 16621 2 syms_11; SGroup 9368 2 syms_12; SGroup 7477 3 syms_13; SGroup 8665 4 syms_14;
     AGroup 16615 5 syms_15; SGroup 8680 14 syms_17]);
   (152636, 20, [AGroup 5 1 [sym_ppDirective]; AGroup 16569 1 [anon_sym_LBRACK];
     AGroup 16571 1 [anon_sym_LPAREN]; AGroup 16575 1 [anon_sym_POUND];
     AGroup 16589 1 [sym_kSpecialize]; AGroup 16593 1 [sym_kIf]; AGroup 16595 1 [sym_kInherited];
     AGroup 17788 1 [sym_kString]; AGroup 3 2 syms_5; AGroup 16573 2 syms_6;
     AGroup 16577 2 syms_7; AGroup 16579 2 syms_8; AGroup 16581 2 syms_9; AGroup 16583 2 syms_10;
     AGroup 16591 2 syms_11; SGroup 8889 2 syms_12; SGroup 7286 3 syms_13; SGroup 8219 4 syms_14;
     AGroup 16585 5 syms_15; SGroup 8506 14 syms_17]);
   (152727, 20, [AGroup 5 1 [sym_ppDirective]; AGroup 16629 1 [anon_sym_LBRACK];
     AGroup 16631 1 [anon_sym_LPAREN]; AGroup 16635 1 [anon_sym_POUND];
     AGroup 16649 1 [sym_kSpecialize]; AGroup 16653 1 [sym_kIf]; AGroup 16655 1 [sym_kInherited];
     AGroup 18203 1 [sym_kString]; AGroup 3 2 syms_5; AGroup 16633 2 syms_6;
     AGroup 16637 2 syms_7; AGroup 16639 2 syms_8; AGroup 16641 2 syms_9; AGroup 16643 2 syms_10;
     AGroup 16651 2 syms_11; SGroup 9289 2 syms_12; SGroup 7517 3 syms_13; SGroup 9762 4 syms_14;
     AGroup 16645 5 syms_15; SGroup 8867 14 syms_17]);
   (152818, 20, [AGroup 5 1 [sym_ppDirective]; AGroup 15647 1 [anon_sym_LBRACK];
     AGroup 15653 1 [anon_sym_POUND]; AGroup 15667 1 [sym_kSpecialize];
     AGroup 15673 1 [sym_kInherited]; AGroup 15675 1 [sym_kString];
     AGroup 15745 1 [anon_sym_LPAREN]; AGroup 15755 1 [sym_kIf]; AGroup 3 2 syms_5;
     AGroup 15651 2 syms_6; AGroup 15655 2 syms_7; AGroup 15657 2 syms_8; AGroup 15669 2 syms_11;
     AGroup 15747 2 syms_9; AGroup 15749 2 syms_10; SGroup 8129 2 syms_12; SGroup 7100 3 syms_13;
     SGroup 9533 4 syms_14; AGroup 15751 5 syms_15; SGroup 8464 14 syms_17]);
   (152909, 20, [AGroup 5 1 [sym_ppDirective]; AGroup 16599 1 [anon_sym_LBRACK];
     AGroup 16601 1 [anon_sym_LPAREN]; AGroup 16605 1 [anon_sym_POUND];
     AGroup 16619 1 [sym_kSpecialize]; AGroup 16623 1 [sym_kIf]; AGroup 16625 1 [sym_kInherited];
     AGroup 17916 1 [sym_kString]; AGroup 3 2 syms_5; AGroup 16603 2 syms_6;
     AGroup 16607 2 syms_7; AGroup 16609 2 syms_8; AGroup 16611 2 syms_9; AGroup 16613 2 syms_10;
     AGroup 16621 2 syms_11; SGroup 9368 2 syms_12; SGroup 7477 3 syms_13; SGroup 8681 4 syms_14;
     AGroup 16615 5 syms_15; SGroup 8680 14 syms_17]);
   (153000, 20, [AGroup 5 1 [sym_ppDirective]; AGroup 15865 1 [anon_sym_LBRACK];
     AGroup 15867 1 [anon_sym_LPAREN]; AGroup 15871 1 [anon_sym_POUND];
     AGroup 15885 1 [sym_kSpecialize]; AGroup 15889 1 [sym_kIf]; AGroup 15891 1 [sym_kInherited];
     AGroup 17304 1 [sym_kString]; AGroup 3 2 syms_5; AGroup 15869 2 syms_6;
     AGroup 15873 2 syms_7; AGroup 15875 2 syms_8; AGroup 15877 2 syms_9; AGroup 15879 2 syms_10;
     AGroup 15887 2 syms_11; SGroup 8622 2 syms_12; SGroup 7298 3 syms_13; SGroup 9473 4 syms_14;
     AGroup 15881 5 syms_15; SGroup 8584 14 syms_17]);
   (153091, 20, [AGroup 5 1 [sym_ppDirective]; AGroup 15865 1 [anon_sym_LBRACK];
     AGroup 15867 1 [anon_sym_LPAREN]; AGroup 15871 1 [anon_sym_POUND];
     AGroup 15885 1 [sym_kSpecialize]; AGroup 15889 1 [sym_kIf]; AGroup 15891 1 [sym_kInherited];
     AGroup 17304 1 [sym_kString]; AGroup 3 2 syms_5; AGroup 15869 2 syms_6;
     AGroup 15873 2 syms_7; AGroup 15875 2 syms_8; AGroup 15877 2 syms_9; AGroup 15879 2 syms_10;
     AGroup 15887 2 syms_11; SGroup 8622 2 syms_12; SGroup 7298 3 syms_13; SGroup 9587 4 syms_14;
     AGroup 15881 5 syms_15; SGroup 8584 14 syms_17]);
   (153182, 20, [AGroup 5 1 [sym_ppDirective]; AGroup 16599 1 [anon_sym_LBRACK];
     AGroup 16601 1 [anon_sym_LPAREN]; AGroup 16605 1 [anon_sym_POUND];
     AGroup 16619 1 [sym_kSpecialize]; AGroup 16623 1 [sym_kIf]; AGroup 16625 1 [sym_kInherited];
     AGroup 17916 1 [sym_kString]; AGroup 3 2 syms_5; AGroup 16603 2 syms_6;
     AGroup 16607 2 syms_7; AGroup 16609 2 syms_8; AGroup 16611 2 syms_9; AGroup 16613 2 syms_10;
     AGroup 16621 2 syms_11; SGroup 9368 2 syms_12; SGroup 7477 3 syms_13; SGroup 8682 4 syms_14;
     AGroup 16615 5 syms_15; SGroup 8680 14 syms_17]);
   (153273, 20, [AGroup 5 1 [sym_ppDirective]; AGroup 16599 1 [anon_sym_LBRACK];
     AGroup 16601 1 [anon_sym_LPAREN]; AGroup 16605 1 [anon_sym_POUND];
     AGroup 16619 1 [sym_kSpecialize]; AGroup 16623 1 [sym_kIf]; AGroup 16625 1 [sym_kInherited];
     AGroup 17916 1 [sym_kString]; AGroup 3 2 syms_5; AGroup 16603 2 syms_6;
     AGroup 16607 2 syms_7; AGroup 16609 2 syms_8; AGroup 16611 2 syms_9; AGroup 16613 2 syms_10;
     AGroup 16621 2 syms_11; SGroup 9368 2 syms_12; SGroup 7477 3 syms_13; SGroup 8683 4 syms_14;
     AGroup 16615 5 syms_15; SGroup 8680 14 syms_17]);
   (153364, 8, [AGroup 5 1 [sym_ppDirective]; AGroup 3 2 syms_5; SGroup 7888 2 syms_12;
     SGroup 6994 3 syms_13; SGroup 7624 4 syms_14; AGroup 18189 5 syms_150;
     SGroup 7765 14 syms_17; AGroup 18187 19 syms_151]);
   (153431, 21, [AGroup 5 1 [sym_ppDirective]; AGroup 16599 1 [anon_sym_LBRACK];
     AGroup 16601 1 [anon_sym_LPAREN]; AGroup 16605 1 [anon_sym_POUND]; AGroup 16613 1 [sym_kAt];
     AGroup 16619 1 [sym_kSpecialize]; AGroup 16623 1 [sym_kIf]; AGroup 16625 1 [sym_kInherited];
     AGroup 17916 1 [sym_kString]; AGroup 18205 1 [sym_kNot]; AGroup 3 2 syms_5;
     AGroup 16603 2 syms_6; AGroup 16607 2 syms_7; AGroup 16609 2 syms_8; AGroup 16611 2 syms_9;
     AGroup 16621 2 syms_11; SGroup 9368 2 syms_12; SGroup 7477 3 syms_13; SGroup 8683 4 syms_14;
     AGroup 16615 5 syms_15; SGroup 8680 14 syms_17]);
   (153524, 20, [AGroup 5 1 [sym_ppDirective]; AGroup 16599 1 [anon_sym_LBRACK];
     AGroup 16601 1 [anon_sym_LPAREN]; AGroup 16605 1 [anon_sym_POUND];
     AGroup 16619 1 [sym_kSpecialize]; AGroup 16623 1 [sym_kIf]; AGroup 16625 1 [sym_kInherited];
     AGroup 17916 1 [sym_kString]; AGroup 3 2 syms_5; AGroup 16603 2 syms_6;
     AGroup 16607 2 syms_7; AGroup 16609 2 syms_8; AGroup 16611 2 syms_9; AGroup 16613 2 syms_10;
     AGroup 16621 2 syms_11; SGroup 9368 2 syms_12; SGroup 7477 3 syms_13; SGroup 8684 4 syms_14;
     AGroup 16615 5 syms_15; SGroup 8680 14 syms_17]);
   (153615, 20, [AGroup 5 1 [sym_ppDirective]; AGroup 16247 1 [anon_sym_LBRACK];
     AGroup 16249 1 [anon_sym_LPAREN]; AGroup 16253 1 [anon_sym_POUND];
     AGroup 16267 1 [sym_kSpecialize]; AGroup 16271 1 [sym_kIf]; AGroup 16273 1 [sym_kInherited];
     AGroup 16745 1 [sym_kString]; AGroup 3 2 syms_5; AGroup 16251 2 syms_6;
     AGroup 16255 2 syms_7; AGroup 16257 2 syms_8; AGroup 16259 2 syms_9; AGroup 16261 2 syms_10;
     AGroup 16269 2 syms_11; SGroup 8258 2 syms_12; SGroup 7207 3 syms_13; SGroup 9941 4 syms_14;
     AGroup 16263 5 syms_15; SGroup 8006 14 syms_17]);
   (153706, 20, [AGroup 5 1 [sym_ppDirective]; AGroup 15755 1 [sym_kIf]; AGroup 16599 1 [anon_sym_LBRACK];
     AGroup 16601 1 [anon_sym_LPAREN]; AGroup 16605 1 [anon_sym_POUND];
     AGroup 16619 1 [sym_kSpecialize]; AGroup 16625 1 [sym_kInherited];
     AGroup 17916 1 [sym_kString]; AGroup 3 2 syms_5; AGroup 15747 2 syms_9;
     AGroup 15749 2 syms_10; AGroup 16603 2 syms_6; AGroup 16607 2 syms_7; AGroup 16609 2 syms_8;
     AGroup 16621 2 syms_11; SGroup 9368 2 syms_12; SGroup 7477 3 syms_13;
     SGroup 10266 4 syms_14; AGroup 18207 5 syms_15; SGroup 8686 14 syms_17]);
   (153797, 20, [AGroup 5 1 [sym_ppDirective]; AGroup 16599 1 [anon_sym_LBRACK];
     AGroup 16601 1 [anon_sym_LPAREN]; AGroup 16605 1 [anon_sym_POUND];
     AGroup 16619 1 [sym_kSpecialize]; AGroup 16623 1 [sym_kIf]; AGroup 16625 1 [sym_kInherited];
     AGroup 17916 1 [sym_kString]; AGroup 3 2 syms_5; AGroup 16603 2 syms_6;
     AGroup 16607 2 syms_7; AGroup 16609 2 syms_8; AGroup 16611 2 syms_9; AGroup 16613 2 syms_10;
     AGroup 16621 2 syms_11; SGroup 9368 2 syms_12; SGroup 7477 3 syms_13; SGroup 8688 4 syms_14;
     AGroup 16615 5 syms_15; SGroup 8680 14 syms_17]);
   (153888, 20, [AGroup 5 1 [sym_ppDirective]; AGroup 14983 1 [anon_sym_LBRACK];
     AGroup 14985 1 [anon_sym_LPAREN]; AGroup 14989 1 [anon_sym_POUND];
     AGroup 15001 1 [sym_kSpecialize]; AGroup 15007 1 [sym_kInherited];
     AGroup 15009 1 [sym_kString]; AGroup 15187 1 [sym_kIf]; AGroup 3 2 syms_5;
     AGroup 14987 2 syms_6; AGroup 14991 2 syms_7; AGroup 14993 2 syms_8; AGroup 15003 2 syms_11;
     AGroup 15181 2 syms_9; AGroup 15183 2 syms_10; SGroup 7132 2 syms_12; SGroup 6248 3 syms_13;
     SGroup 7638 4 syms_14; AGroup 15185 5 syms_15; SGroup 7210 14 syms_17]);
   (153979, 20, [AGroup 5 1 [sym_ppDirective]; AGroup 14983 1 [anon_sym_LBRACK];
     AGroup 14985 1 [anon_sym_LPAREN]; AGroup 14989 1 [anon_sym_POUND];
     AGroup 15001 1 [sym_kSpecialize]; AGroup 15007 1 [sym_kInherited];
     AGroup 15009 1 [sym_kString]; AGroup 15187 1 [sym_kIf]; AGroup 3 2 syms_5;
     AGroup 14987 2 syms_6; AGroup 14991 2 syms_7; AGroup 14993 2 syms_8; AGroup 15003 2 syms_11;
     AGroup 15181 2 syms_9; AGroup 15183 2 syms_10; SGroup 7132 2 syms_12; SGroup 6248 3 syms_13;
     SGroup 7640 4 syms_14; AGroup 15185 5 syms_15; SGroup 7210 14 syms_17]);
   (154070, 20, [AGroup 5 1 [sym_ppDirective]; AGroup 15755 1 [sym_kIf]; AGroup 16071 1 [anon_sym_LBRACK];
     AGroup 16073 1 [anon_sym_LPAREN]; AGroup 16077 1 [anon_sym_POUND];
     AGroup 16091 1 [sym_kSpecialize]; AGroup 16097 1 [sym_kInherited];
     AGroup 17710 1 [sym_kString]; AGroup 3 2 syms_5; AGroup 15747 2 syms_9;
     AGroup 15749 2 syms_10; AGroup 16075 2 syms_6; AGroup 16079 2 syms_7; AGroup 16081 2 syms_8;
     AGroup 16093 2 syms_11; SGroup 8930 2 syms_12; SGroup 7257 3 syms_13;
     SGroup 10278 4 syms_14; AGroup 18209 5 syms_15; SGroup 8365 14 syms_17]);
   (154161, 20, [AGroup 5 1 [sym_ppDirective]; AGroup 16131 1 [anon_sym_LBRACK];
     AGroup 16133 1 [anon_sym_LPAREN]; AGroup 16137 1 [anon_sym_POUND];
     AGroup 16151 1 [sym_kSpecialize]; AGroup 16155 1 [sym_kIf]; AGroup 16157 1 [sym_kInherited];
     AGroup 17420 1 [sym_kString]; AGroup 3 2 syms_5; AGroup 16135 2 syms_6;
     AGroup 16139 2 syms_7; AGroup 16141 2 syms_8; AGroup 16143 2 syms_9; AGroup 16145 2 syms_10;
     AGroup 16153 2 syms_11; SGroup 8630 2 syms_12; SGroup 7260 3 syms_13; SGroup 9488 4 syms_14;
     AGroup 16147 5 syms_15; SGroup 8446 14 syms_17]);
   (154252, 20, [AGroup 5 1 [sym_ppDirective]; AGroup 16599 1 [anon_sym_LBRACK];
     AGroup 16601 1 [anon_sym_LPAREN]; AGroup 16605 1 [anon_sym_POUND];
     AGroup 16619 1 [sym_kSpecialize]; AGroup 16623 1 [sym_kIf]; AGroup 16625 1 [sym_kInherited];
     AGroup 17916 1 [sym_kString]; AGroup 3 2 syms_5; AGroup 16603 2 syms_6;
     AGroup 16607 2 syms_7; AGroup 16609 2 syms_8; AGroup 16611 2 syms_9; AGroup 16613 2 syms_10;
     AGroup 16621 2 syms_11; SGroup 9368 2 syms_12; SGroup 7477 3 syms_13; SGroup 8691 4 syms_14;
     AGroup 16615 5 syms_15; SGroup 8680 14 syms_17]);
   (154343, 20, [AGroup 5 1 [sym_ppDirective]; AGroup 15711 1 [anon_sym_LBRACK];
     AGroup 15713 1 [anon_sym_LPAREN]; AGroup 15717 1 [anon_sym_POUND];
     AGroup 15731 1 [sym_kSpecialize]; AGroup 15735 1 [sym_kIf]; AGroup 15737 1 [sym_kInherited];
     AGroup 17180 1 [sym_kString]; AGroup 3 2 syms_5; AGroup 15715 2 syms_6;
     AGroup 15719 2 syms_7; AGroup 15721 2 syms_8; AGroup 15723 2 syms_9; AGroup 15725 2 syms_10;
     AGroup 15733 2 syms_11; SGroup 9361 2 syms_12; SGroup 7548 3 syms_13; SGroup 9799 4 syms_14;
     AGroup 15727 5 syms_15; SGroup 8938 14 syms_17]);
   (154434, 20, [AGroup 5 1 [sym_ppDirective]; AGroup 16131 1 [anon_sym_LBRACK];
     AGroup 16133 1 [anon_sym_LPAREN]; AGroup 16137 1 [anon_sym_POUND];
     AGroup 16151 1 [sym_kSpecialize]; AGroup 16155 1 [sym_kIf]; AGroup 16157 1 [sym_kInherited];
     AGroup 17420 1 [sym_kString]; AGroup 3 2 syms_5; AGroup 16135 2 syms_6;
     AGroup 16139 2 syms_7; AGroup 16141 2 syms_8; AGroup 16143 2 syms_9; AGroup 16145 2 syms_10;
     AGroup 16153 2 syms_11; SGroup 8630 2 syms_12; SGroup 7260 3 syms_13; SGroup 9585 4 syms_14;
     AGroup 16147 5 syms_15; SGroup 8446 14 syms_17]);
   (154525, 20, [AGroup 5 1 [sym_ppDirective]; AGroup 16131 1 [anon_sym_LBRACK];
     AGroup 16133 1 [anon_sym_LPAREN]; AGroup 16137 1 [anon_sym_POUND];
     AGroup 16151 1 [sym_kSpecialize]; AGroup 16155 1 [sym_kIf]; AGroup 16157 1 [sym_kInherited];
     AGroup 17420 1 [sym_kString]; AGroup 3 2 syms_5; AGroup 16135 2 syms_6;
     AGroup 16139 2 syms_7; AGroup 16141 2 syms_8; AGroup 16143 2 syms_9; AGroup 16145 2 syms_10;
     AGroup 16153 2 syms_11; SGroup 8630 2 syms_12; SGroup 7260 3 syms_13; SGroup 9588 4 syms_14;
     AGroup 16147 5 syms_15; SGroup 8446 14 syms_17]);
   (154616, 4, [AGroup 5 1 [sym_ppDirective]; AGroup 3 2 syms_5; AGroup 15295 5 syms_148;
     AGroup 15293 42 syms_152]);
   (154675, 20, [AGroup 5 1 [sym_ppDirective]; AGroup 15615 1 [anon_sym_LBRACK];
     AGroup 15617 1 [anon_sym_LPAREN]; AGroup 15621 1 [anon_sym_POUND];
     AGroup 15635 1 [sym_kSpecialize]; AGroup 15639 1 [sym_kIf]; AGroup 15641 1 [sym_kInherited];
     AGroup 16872 1 [sym_kString]; AGroup 3 2 syms_5; AGroup 15619 2 syms_6;
     AGroup 15623 2 syms_7; AGroup 15625 2 syms_8; AGroup 15627 2 syms_9; AGroup 15629 2 syms_10;
     AGroup 15637 2 syms_11; SGroup 8200 2 syms_12; SGroup 7203 3 syms_13; SGroup 8022 4 syms_14;
     AGroup 15631 5 syms_15; SGroup 8033 14 syms_17]);
   (154766, 8, [AGroup 5 1 [sym_ppDirective]; AGroup 3 2 syms_5; SGroup 8258 2 syms_12;
     SGroup 7207 3 syms_13; SGroup 8056 4 syms_14; AGroup 18189 5 syms_150;
     SGroup 8006 14 syms_17; AGroup 18187 19 syms_151]);
   (154833, 5, [AGroup 5 1 [sym_ppDirective]; AGroup 3 2 syms_5; AGroup 15473 4 syms_25;
     AGroup 15403 18 syms_36; AGroup 15471 25 syms_153]);
   (154894, 4, [AGroup 5 1 [sym_ppDirective]; AGroup 3 2 syms_5; AGroup 15355 5 syms_148;
     AGroup 15353 42 syms_152]);
   (154953, 20, [AGroup 5 1 [sym_ppDirective]; AGroup 15615 1 [anon_sym_LBRACK];
     AGroup 15617 1 [anon_sym_LPAREN]; AGroup 15621 1 [anon_sym_POUND];
     AGroup 15635 1 [sym_kSpecialize]; AGroup 15639 1 [sym_kIf]; AGroup 15641 1 [sym_kInherited];
     AGroup 16872 1 [sym_kString]; AGroup 3 2 syms_5; AGroup 15619 2 syms_6;
     AGroup 15623 2 syms_7; AGroup 15625 2 syms_8; AGroup 15627 2 syms_9; AGroup 15629 2 syms_10;
     AGroup 15637 2 syms_11; SGroup 8200 2 syms_12; SGroup 7203 3 syms_13; SGroup 8039 4 syms_14;
     AGroup 15631 5 syms_15; SGroup 8033 14 syms_17]);
   (155044, 20, [AGroup 5 1 [sym_ppDirective]; AGroup 15615 1 [anon_sym_LBRACK];
     AGroup 15617 1 [anon_sym_LPAREN]; AGroup 15621 1 [anon_sym_POUND];
     AGroup 15635 1 [sym_kSpecialize]; AGroup 15639 1 [sym_kIf]; AGroup 15641 1 [sym_kInherited];
     AGroup 16872 1 [sym_kString]; AGroup 3 2 syms_5; AGroup 15619 2 syms_6;
     AGroup 15623 2 syms_7; AGroup 15625 2 syms_8; AGroup 15627 2 syms_9; AGroup 15629 2 syms_10;
     AGroup 15637 2 syms_11; SGroup 8200 2 syms_12; SGroup 7203 3 syms_13; SGroup 8040 4 syms_14;
     AGroup 15631 5 syms_15; SGroup 8033 14 syms_17]);
   (155135, 20, [AGroup 5 1 [sym_ppDirective]; AGroup 15615 1 [anon_sym_LBRACK];
     AGroup 15617 1 [anon_sym_LPAREN]; AGroup 15621 1 [anon_sym_POUND];
     AGroup 15635 1 [sym_kSpecialize]; AGroup 15639 1 [sym_kIf]; AGroup 15641 1 [sym_kInherited];
     AGroup 16872 1 [sym_kString]; AGroup 3 2 syms_5; AGroup 15619 2 syms_6;
     AGroup 15623 2 syms_7; AGroup 15625 2 syms_8; AGroup 15627 2 syms_9; AGroup 15629 2 syms_10;
     AGroup 15637 2 syms_11; SGroup 8200 2 syms_12; SGroup 7203 3 syms_13; SGroup 8041 4 syms_14;
     AGroup 15631 5 syms_15; SGroup 8033 14 syms_17]);
   (155226, 21, [AGroup 5 1 [sym_ppDirective]; AGroup 15615 1 [anon_sym_LBRACK];
     AGroup 15617 1 [anon_sym_LPAREN]; AGroup 15621 1 [anon_sym_POUND]; AGroup 15629 1 [sym_kAt];
     AGroup 15635 1 [sym_kSpecialize]; AGroup 15639 1 [sym_kIf]; AGroup 15641 1 [sym_kInherited];
     AGroup 16872 1 [sym_kString]; AGroup 18211 1 [sym_kNot]; AGroup 3 2 syms_5;
     AGroup 15619 2 syms_6; AGroup 15623 2 syms_7; AGroup 15625 2 syms_8; AGroup 15627 2 syms_9;
     AGroup 15637 2 syms_11; SGroup 8200 2 syms_12; SGroup 7203 3 syms_13; SGroup 8041 4 syms_14;
     AGroup 15631 5 syms_15; SGroup 8033 14 syms_17]);
   (155319, 20, [AGroup 5 1 [sym_ppDirective]; AGroup 15615 1 [anon_sym_LBRACK];
     AGroup 15617 1 [anon_sym_LPAREN]; AGroup 15621 1 [anon_sym_POUND];
     AGroup 15635 1 [sym_kSpecialize]; AGroup 15639 1 [sym_kIf]; AGroup 15641 1 [sym_kInherited];
     AGroup 16872 1 [sym_kString]; AGroup 3 2 syms_5; AGroup 15619 2 syms_6;
     AGroup 15623 2 syms_7; AGroup 15625 2 syms_8; AGroup 15627 2 syms_9; AGroup 15629 2 syms_10;
     AGroup 15637 2 syms_11; SGroup 8200 2 syms_12; SGroup 7203 3 syms_13; SGroup 8042 4 syms_14;
     AGroup 15631 5 syms_15; SGroup 8033 14 syms_17]);
   (155410, 20, [AGroup 5 1 [sym_ppDirective]; AGroup 15615 1 [anon_sym_LBRACK];
     AGroup 15617 1 [anon_sym_LPAREN]; AGroup 15621 1 [anon_sym_POUND];
     AGroup 15635 1 [sym_kSpecialize]; AGroup 15641 1 [sym_kInherited]; AGroup 15755 1 [sym_kIf];
     AGroup 16872 1 [sym_kString]; AGroup 3 2 syms_5; AGroup 15619 2 syms_6;
     AGroup 15623 2 syms_7; AGroup 15625 2 syms_8; AGroup 15637 2 syms_11; AGroup 15747 2 syms_9;
     AGroup 15749 2 syms_10; SGroup 8200 2 syms_12; SGroup 7203 3 syms_13;
     SGroup 10319 4 syms_14; AGroup 18213 5 syms_15; SGroup 8043 14 syms_17]);
   (155501, 5, [AGroup 5 1 [sym_ppDirective]; AGroup 3 2 syms_5; AGroup 15496 4 syms_25;
     AGroup 15403 18 syms_36; AGroup 15494 25 syms_154]);
   (155562, 5, [AGroup 5 1 [sym_ppDirective]; AGroup 3 2 syms_5; AGroup 15504 4 syms_25;
     AGroup 15403 18 syms_36; AGroup 15502 25 syms_153]);
   (155623, 5, [AGroup 5 1 [sym_ppDirective]; AGroup 3 2 syms_5; AGroup 15484 4 syms_25;
     AGroup 15403 18 syms_36; AGroup 15482 25 syms_153]);
   (155684, 20, [AGroup 5 1 [sym_ppDirective]; AGroup 15615 1 [anon_sym_LBRACK];
     AGroup 15617 1 [anon_sym_LPAREN]; AGroup 15621 1 [anon_sym_POUND];
     AGroup 15635 1 [sym_kSpecialize]; AGroup 15639 1 [sym_kIf]; AGroup 15641 1 [sym_kInherited];
     AGroup 16872 1 [sym_kString]; AGroup 3 2 syms_5; AGroup 15619 2 syms_6;
     AGroup 15623 2 syms_7; AGroup 15625 2 syms_8; AGroup 15627 2 syms_9; AGroup 15629 2 syms_10;
     AGroup 15637 2 syms_11; SGroup 8200 2 syms_12; SGroup 7203 3 syms_13; SGroup 8046 4 syms_14;
     AGroup 15631 5 syms_15; SGroup 8033 14 syms_17]);
   (155775, 20, [AGroup 5 1 [sym_ppDirective]; AGroup 14983 1 [anon_sym_LBRACK];
     AGroup 14985 1 [anon_sym_LPAREN]; AGroup 14989 1 [anon_sym_POUND];
     AGroup 15001 1 [sym_kSpecialize]; AGroup 15007 1 [sym_kInherited];
     AGroup 15009 1 [sym_kString]; AGroup 15187 1 [sym_kIf]; AGroup 3 2 syms_5;
     AGroup 14987 2 syms_6; AGroup 14991 2 syms_7; AGroup 14993 2 syms_8; AGroup 15003 2 syms_11;
     AGroup 15181 2 syms_9; AGroup 15183 2 syms_10; SGroup 7132 2 syms_12; SGroup 6248 3 syms_13;
     SGroup 7641 4 syms_14; AGroup 15185 5 syms_15; SGroup 7210 14 syms_17]);
   (155866, 20, [AGroup 5 1 [sym_ppDirective]; AGroup 16337 1 [anon_sym_LBRACK];
     AGroup 16339 1 [anon_sym_LPAREN]; AGroup 16343 1 [anon_sym_POUND];
     AGroup 16357 1 [sym_kSpecialize]; AGroup 16361 1 [sym_kIf]; AGroup 16363 1 [sym_kInherited];
     AGroup 17202 1 [sym_kString]; AGroup 3 2 syms_5; AGroup 16341 2 syms_6;
     AGroup 16345 2 syms_7; AGroup 16347 2 syms_8; AGroup 16349 2 syms_9; AGroup 16351 2 syms_10;
     AGroup 16359 2 syms_11; SGroup 7828 2 syms_12; SGroup 7011 3 syms_13; SGroup 8575 4 syms_14;
     AGroup 16353 5 syms_15; SGroup 7566 14 syms_17]);
   (155957, 5, [AGroup 5 1 [sym_ppDirective]; AGroup 3 2 syms_5; AGroup 15492 4 syms_25;
     AGroup 15403 18 syms_36; AGroup 15490 25 syms_153]);
   (156018, 5, [AGroup 5 1 [sym_ppDirective]; AGroup 3 2 syms_5; AGroup 15401 4 syms_25;
     AGroup 15403 18 syms_36; AGroup 15399 25 syms_153]);
   (156079, 2, [AGroup 3 3 syms_1; AGroup 15594 47 syms_155]);
   (156134, 20, [AGroup 5 1 [sym_ppDirective]; AGroup 15865 1 [anon_sym_LBRACK];
     AGroup 15867 1 [anon_sym_LPAREN]; AGroup 15871 1 [anon_sym_POUND];
     AGroup 15885 1 [sym_kSpecialize]; AGroup 15889 1 [sym_kIf]; AGroup 15891 1 [sym_kInherited];
     AGroup 17304 1 [sym_kString]; AGroup 3 2 syms_5; AGroup 15869 2 syms_6;
     AGroup 15873 2 syms_7; AGroup 15875 2 syms_8; AGroup 15877 2 syms_9; AGroup 15879 2 syms_10;
     AGroup 15887 2 syms_11; SGroup 8622 2 syms_12; SGroup 7298 3 syms_13; SGroup 9570 4 syms_14;
     AGroup 15881 5 syms_15; SGroup 8584 14 syms_17]);
   (156225, 20, [AGroup 5 1 [sym_ppDirective]; AGroup 14983 1 [anon_sym_LBRACK];
     AGroup 14985 1 [anon_sym_LPAREN]; AGroup 14989 1 [anon_sym_POUND];
     AGroup 15001 1 [sym_kSpecialize]; AGroup 15007 1 [sym_kInherited];
     AGroup 15009 1 [sym_kString]; AGroup 15187 1 [sym_kIf]; AGroup 3 2 syms_5;
     AGroup 14987 2 syms_6; AGroup 14991 2 syms_7; AGroup 14993 2 syms_8; AGroup 15003 2 syms_11;
     AGroup 15181 2 syms_9; AGroup 15183 2 syms_10; SGroup 7132 2 syms_12; SGroup 6248 3 syms_13;
     SGroup 7647 4 syms_14; AGroup 15185 5 syms_15; SGroup 7210 14 syms_17]);
   (156316, 20, [AGroup 5 1 [sym_ppDirective]; AGroup 16337 1 [anon_sym_LBRACK];
     AGroup 16339 1 [anon_sym_LPAREN]; AGroup 16343 1 [anon_sym_POUND];
     AGroup 16357 1 [sym_kSpecialize]; AGroup 16361 1 [sym_kIf]; AGroup 16363 1 [sym_kInherited];
     AGroup 17202 1 [sym_kString]; AGroup 3 2 syms_5; AGroup 16341 2 syms_6;
     AGroup 16345 2 syms_7; AGroup 16347 2 syms_8; AGroup 16349 2 syms_9; AGroup 16351 2 syms_10;
     AGroup 16359 2 syms_11; SGroup 7828 2 syms_12; SGroup 7011 3 syms_13; SGroup 8592 4 syms_14;
     AGroup 16353 5 syms_15; SGroup 7566 14 syms_17]);
   (156407, 20, [AGroup 5 1 [sym_ppDirective]; AGroup 16337 1 [anon_sym_LBRACK];
     AGroup 16339 1 [anon_sym_LPAREN]; AGroup 16343 1 [anon_sym_POUND];
     AGroup 16357 1 [sym_kSpecialize]; AGroup 16361 1 [sym_kIf]; AGroup 16363 1 [sym_kInherited];
     AGroup 17202 1 [sym_kString]; AGroup 3 2 syms_5; AGroup 16341 2 syms_6;
     AGroup 16345 2 syms_7; AGroup 16347 2 syms_8; AGroup 16349 2 syms_9; AGroup 16351 2 syms_10;
     AGroup 16359 2 syms_11; SGroup 7828 2 syms_12; SGroup 7011 3 syms_13; SGroup 8596 4 syms_14;
     AGroup 16353 5 syms_15; SGroup 7566 14 syms_17]);
   (156498, 8, [AGroup 5 1 [sym_ppDirective]; AGroup 3 2 syms_5; SGroup 9525 2 syms_12;
     SGroup 7769 3 syms_13; SGroup 9317 4 syms_14; AGroup 18189 5 syms_150;
     SGroup 9072 14 syms_17; AGroup 18187 19 syms_151]);
   (156565, 20, [AGroup 5 1 [sym_ppDirective]; AGroup 16247 1 [anon_sym_LBRACK];
     AGroup 16249 1 [anon_sym_LPAREN]; AGroup 16253 1 [anon_sym_POUND];
     AGroup 16267 1 [sym_kSpecialize]; AGroup 16271 1 [sym_kIf]; AGroup 16273 1 [sym_kInherited];
     AGroup 16745 1 [sym_kString]; AGroup 3 2 syms_5; AGroup 16251 2 syms_6;
     AGroup 16255 2 syms_7; AGroup 16257 2 syms_8; AGroup 16259 2 syms_9; AGroup 16261 2 syms_10;
     AGroup 16269 2 syms_11; SGroup 8258 2 syms_12; SGroup 7207 3 syms_13;
     SGroup 10064 4 syms_14; AGroup 16263 5 syms_15; SGroup 8006 14 syms_17]);
   (156656, 20, [AGroup 5 1 [sym_ppDirective]; AGroup 15647 1 [anon_sym_LBRACK];
     AGroup 15653 1 [anon_sym_POUND]; AGroup 15667 1 [sym_kSpecialize];
     AGroup 15673 1 [sym_kInherited]; AGroup 15675 1 [sym_kString];
     AGroup 15745 1 [anon_sym_LPAREN]; AGroup 15755 1 [sym_kIf]; AGroup 3 2 syms_5;
     AGroup 15651 2 syms_6; AGroup 15655 2 syms_7; AGroup 15657 2 syms_8; AGroup 15669 2 syms_11;
     AGroup 15747 2 syms_9; AGroup 15749 2 syms_10; SGroup 8129 2 syms_12; SGroup 7100 3 syms_13;
     SGroup 10152 4 syms_14; AGroup 15751 5 syms_15; SGroup 8464 14 syms_17]);
   (156747, 5, [AGroup 5 1 [sym_ppDirective]; AGroup 3 2 syms_5; AGroup 15439 4 syms_25;
     AGroup 15403 18 syms_36; AGroup 15437 25 syms_153]);
   (156808, 5, [AGroup 5 1 [sym_ppDirective]; AGroup 3 2 syms_5; AGroup 15488 4 syms_25;
     AGroup 15403 18 syms_36; AGroup 15486 25 syms_153]);
   (156869, 20, [AGroup 5 1 [sym_ppDirective]; AGroup 15647 1 [anon_sym_LBRACK];
     AGroup 15653 1 [anon_sym_POUND]; AGroup 15667 1 [sym_kSpecialize];
     AGroup 15673 1 [sym_kInherited]; AGroup 15675 1 [sym_kString];
     AGroup 15745 1 [anon_sym_LPAREN]; AGroup 15755 1 [sym_kIf]; AGroup 3 2 syms_5;
     AGroup 15651 2 syms_6; AGroup 15655 2 syms_7; AGroup 15657 2 syms_8; AGroup 15669 2 syms_11;
     AGroup 15747 2 syms_9; AGroup 15749 2 syms_10; SGroup 8129 2 syms_12; SGroup 7100 3 syms_13;
     SGroup 10226 4 syms_14; AGroup 15751 5 syms_15; SGroup 8464 14 syms_17]);
   (156960, 20, [AGroup 5 1 [sym_ppDirective]; AGroup 15647 1 [anon_sym_LBRACK];
     AGroup 15653 1 [anon_sym_POUND]; AGroup 15667 1 [sym_kSpecialize];
     AGroup 15673 1 [sym_kInherited]; AGroup 15675 1 [sym_kString];
     AGroup 15745 1 [anon_sym_LPAREN]; AGroup 15755 1 [sym_kIf]; AGroup 3 2 syms_5;
     AGroup 15651 2 syms_6; AGroup 15655 2 syms_7; AGroup 15657 2 syms_8; AGroup 15669 2 syms_11;
     AGroup 15747 2 syms_9; AGroup 15749 2 syms_10; SGroup 8129 2 syms_12; SGroup 7100 3 syms_13;
     SGroup 9445 4 syms_14; AGroup 15751 5 syms_15; SGroup 8464 14 syms_17]);
   (157051, 20, [AGroup 5 1 [sym_ppDirective]; AGroup 15647 1 [anon_sym_LBRACK];
     AGroup 15653 1 [anon_sym_POUND]; AGroup 15667 1 [sym_kSpecialize];
     AGroup 15673 1 [sym_kInherited]; AGroup 15675 1 [sym_kString];
     AGroup 15745 1 [anon_sym_LPAREN]; AGroup 16065 1 [sym_kIf]; AGroup 3 2 syms_5;
     AGroup 15651 2 syms_6; AGroup 15655 2 syms_7; AGroup 15657 2 syms_8; AGroup 15669 2 syms_11;
     AGroup 16059 2 syms_9; AGroup 16061 2 syms_10; SGroup 8129 2 syms_12; SGroup 7100 3 syms_13;
     SGroup 7910 4 syms_14; AGroup 16063 5 syms_15; SGroup 7805 14 syms_17]);
   (157142, 20, [AGroup 5 1 [sym_ppDirective]; AGroup 15615 1 [anon_sym_LBRACK];
     AGroup 15617 1 [anon_sym_LPAREN]; AGroup 15621 1 [anon_sym_POUND];
     AGroup 15635 1 [sym_kSpecialize]; AGroup 15639 1 [sym_kIf]; AGroup 15641 1 [sym_kInherited];
     AGroup 16872 1 [sym_kString]; AGroup 3 2 syms_5; AGroup 15619 2 syms_6;
     AGroup 15623 2 syms_7; AGroup 15625 2 syms_8; AGroup 15627 2 syms_9; AGroup 15629 2 syms_10;
     AGroup 15637 2 syms_11; SGroup 8200 2 syms_12; SGroup 7203 3 syms_13; SGroup 8048 4 syms_14;
     AGroup 15631 5 syms_15; SGroup 8033 14 syms_17]);
   (157233, 20, [AGroup 5 1 [sym_ppDirective]; AGroup 15647 1 [anon_sym_LBRACK];
     AGroup 15653 1 [anon_sym_POUND]; AGroup 15667 1 [sym_kSpecialize];
     AGroup 15673 1 [sym_kInherited]; AGroup 15675 1 [sym_kString];
     AGroup 15745 1 [anon_sym_LPAREN]; AGroup 15755 1 [sym_kIf]; AGroup 3 2 syms_5;
     AGroup 15651 2 syms_6; AGroup 15655 2 syms_7; AGroup 15657 2 syms_8; AGroup 15669 2 syms_11;
     AGroup 15747 2 syms_9; AGroup 15749 2 syms_10; SGroup 8129 2 syms_12; SGroup 7100 3 syms_13;
     SGroup 9584 4 syms_14; AGroup 15751 5 syms_15; SGroup 8464 14 syms_17]);
   (157324, 21, [AGroup 5 1 [sym_ppDirective]; AGroup 15647 1 [anon_sym_LBRACK];
     AGroup 15653 1 [anon_sym_POUND]; AGroup 15667 1 [sym_kSpecialize];
     AGroup 15673 1 [sym_kInherited]; AGroup 15675 1 [sym_kString];
     AGroup 15745 1 [anon_sym_LPAREN]; AGroup 15749 1 [sym_kAt]; AGroup 15755 1 [sym_kIf];
     AGroup 18215 1 [sym_kNot]; AGroup 3 2 syms_5; AGroup 15651 2 syms_6; AGroup 15655 2 syms_7;
     AGroup 15657 2 syms_8; AGroup 15669 2 syms_11; AGroup 15747 2 syms_9; SGroup 8129 2 syms_12;
     SGroup 7100 3 syms_13; SGroup 9584 4 syms_14; AGroup 15751 5 syms_15; SGroup 8464 14 syms_17]);
   (157417, 20, [AGroup 5 1 [sym_ppDirective]; AGroup 16071 1 [anon_sym_LBRACK];
     AGroup 16073 1 [anon_sym_LPAREN]; AGroup 16077 1 [anon_sym_POUND];
     AGroup 16091 1 [sym_kSpecialize]; AGroup 16095 1 [sym_kIf]; AGroup 16097 1 [sym_kInherited];
     AGroup 17710 1 [sym_kString]; AGroup 3 2 syms_5; AGroup 16075 2 syms_6;
     AGroup 16079 2 syms_7; AGroup 16081 2 syms_8; AGroup 16083 2 syms_9; AGroup 16085 2 syms_10;
     AGroup 16093 2 syms_11; SGroup 8930 2 syms_12; SGroup 7257 3 syms_13; SGroup 8373 4 syms_14;
     AGroup 16087 5 syms_15; SGroup 8310 14 syms_17]);
   (157508, 5, [AGroup 5 1 [sym_ppDirective]; AGroup 3 2 syms_5; AGroup 15496 4 syms_25;
     AGroup 15403 18 syms_36; AGroup 15494 25 syms_153]);
   (157569, 20, [AGroup 5 1 [sym_ppDirective]; AGroup 15831 1 [anon_sym_LBRACK];
     AGroup 15833 1 [anon_sym_LPAREN]; AGroup 15837 1 [anon_sym_POUND];
     AGroup 15851 1 [sym_kSpecialize]; AGroup 15855 1 [sym_kIf]; AGroup 15857 1 [sym_kInherited];
     AGroup 17312 1 [sym_kString]; AGroup 3 2 syms_5; AGroup 15835 2 syms_6;
     AGroup 15839 2 syms_7; AGroup 15841 2 syms_8; AGroup 15843 2 syms_9; AGroup 15845 2 syms_10;
     AGroup 15853 2 syms_11; SGroup 9267 2 syms_12; SGroup 7556 3 syms_13; SGroup 9642 4 syms_14;
     AGroup 15847 5 syms_15; SGroup 8649 14 syms_17]);
   (157660, 20, [AGroup 5 1 [sym_ppDirective]; AGroup 15647 1 [anon_sym_LBRACK];
     AGroup 15653 1 [anon_sym_POUND]; AGroup 15667 1 [sym_kSpecialize];
     AGroup 15673 1 [sym_kInherited]; AGroup 15675 1 [sym_kString];
     AGroup 15745 1 [anon_sym_LPAREN]; AGroup 15755 1 [sym_kIf]; AGroup 3 2 syms_5;
     AGroup 15651 2 syms_6; AGroup 15655 2 syms_7; AGroup 15657 2 syms_8; AGroup 15669 2 syms_11;
     AGroup 15747 2 syms_9; AGroup 15749 2 syms_10; SGroup 8129 2 syms_12; SGroup 7100 3 syms_13;
     SGroup 9602 4 syms_14; AGroup 15751 5 syms_15; SGroup 8464 14 syms_17]);
   (157751, 20, [AGroup 5 1 [sym_ppDirective]; AGroup 16131 1 [anon_sym_LBRACK];
     AGroup 16133 1 [anon_sym_LPAREN]; AGroup 16137 1 [anon_sym_POUND];
     AGroup 16151 1 [sym_kSpecialize]; AGroup 16155 1 [sym_kIf]; AGroup 16157 1 [sym_kInherited];
     AGroup 17420 1 [sym_kString]; AGroup 3 2 syms_5; AGroup 16135 2 syms_6;
     AGroup 16139 2 syms_7; AGroup 16141 2 syms_8; AGroup 16143 2 syms_9; AGroup 16145 2 syms_10;
     AGroup 16153 2 syms_11; SGroup 8630 2 syms_12; SGroup 7260 3 syms_13; SGroup 9589 4 syms_14;
     AGroup 16147 5 syms_15; SGroup 8446 14 syms_17]);
   (157842, 20, [AGroup 5 1 [sym_ppDirective]; AGroup 15831 1 [anon_sym_LBRACK];
     AGroup 15833 1 [anon_sym_LPAREN]; AGroup 15837 1 [anon_sym_POUND];
     AGroup 15851 1 [sym_kSpecialize]; AGroup 15855 1 [sym_kIf]; AGroup 15857 1 [sym_kInherited];
     AGroup 17312 1 [sym_kString]; AGroup 3 2 syms_5; AGroup 15835 2 syms_6;
     AGroup 15839 2 syms_7; AGroup 15841 2 syms_8; AGroup 15843 2 syms_9; AGroup 15845 2 syms_10;
     AGroup 15853 2 syms_11; SGroup 9267 2 syms_12; SGroup 7556 3 syms_13; SGroup 9712 4 syms_14;
     AGroup 15847 5 syms_15; SGroup 8649 14 syms_17]);
   (157933, 20, [AGroup 5 1 [sym_ppDirective]; AGroup 15831 1 [anon_sym_LBRACK];
     AGroup 15833 1 [anon_sym_LPAREN]; AGroup 15837 1 [anon_sym_POUND];
     AGroup 15851 1 [sym_kSpecialize]; AGroup 15855 1 [sym_kIf]; AGroup 15857 1 [sym_kInherited];
     AGroup 17312 1 [sym_kString]; AGroup 3 2 syms_5; AGroup 15835 2 syms_6;
     AGroup 15839 2 syms_7; AGroup 15841 2 syms_8; AGroup 15843 2 syms_9; AGroup 15845 2 syms_10;
     AGroup 15853 2 syms_11; SGroup 9267 2 syms_12; SGroup 7556 3 syms_13; SGroup 9637 4 syms_14;
     AGroup 15847 5 syms_15; SGroup 8649 14 syms_17]);
   (158024, 8, [AGroup 5 1 [sym_ppDirective]; AGroup 3 2 syms_5; SGroup 8889 2 syms_12;
     SGroup 7286 3 syms_13; SGroup 8320 4 syms_14; AGroup 18189 5 syms_150;
     SGroup 8506 14 syms_17; AGroup 18187 19 syms_151]);
   (158091, 20, [AGroup 5 1 [sym_ppDirective]; AGroup 15791 1 [anon_sym_LBRACK];
     AGroup 15793 1 [anon_sym_LPAREN]; AGroup 15797 1 [anon_sym_POUND];
     AGroup 15811 1 [sym_kSpecialize]; AGroup 15815 1 [sym_kIf]; AGroup 15817 1 [sym_kInherited];
     AGroup 17716 1 [sym_kString]; AGroup 3 2 syms_5; AGroup 15795 2 syms_6;
     AGroup 15799 2 syms_7; AGroup 15801 2 syms_8; AGroup 15803 2 syms_9; AGroup 15805 2 syms_10;
     AGroup 15813 2 syms_11; SGroup 8765 2 syms_12; SGroup 7328 3 syms_13; SGroup 8205 4 syms_14;
     AGroup 15807 5 syms_15; SGroup 8252 14 syms_17]);
   (158182, 20, [AGroup 5 1 [sym_ppDirective]; AGroup 15791 1 [anon_sym_LBRACK];
     AGroup 15793 1 [anon_sym_LPAREN]; AGroup 15797 1 [anon_sym_POUND];
     AGroup 15811 1 [sym_kSpecialize]; AGroup 15815 1 [sym_kIf]; AGroup 15817 1 [sym_kInherited];
     AGroup 17716 1 [sym_kString]; AGroup 3 2 syms_5; AGroup 15795 2 syms_6;
     AGroup 15799 2 syms_7; AGroup 15801 2 syms_8; AGroup 15803 2 syms_9; AGroup 15805 2 syms_10;
     AGroup 15813 2 syms_11; SGroup 8765 2 syms_12; SGroup 7328 3 syms_13; SGroup 8262 4 syms_14;
     AGroup 15807 5 syms_15; SGroup 8252 14 syms_17]);
   (158273, 20, [AGroup 5 1 [sym_ppDirective]; AGroup 15791 1 [anon_sym_LBRACK];
     AGroup 15793 1 [anon_sym_LPAREN]; AGroup 15797 1 [anon_sym_POUND];
     AGroup 15811 1 [sym_kSpecialize]; AGroup 15815 1 [sym_kIf]; AGroup 15817 1 [sym_kInherited];
     AGroup 17716 1 [sym_kString]; AGroup 3 2 syms_5; AGroup 15795 2 syms_6;
     AGroup 15799 2 syms_7; AGroup 15801 2 syms_8; AGroup 15803 2 syms_9; AGroup 15805 2 syms_10;
     AGroup 15813 2 syms_11; SGroup 8765 2 syms_12; SGroup 7328 3 syms_13; SGroup 8264 4 syms_14;
     AGroup 15807 5 syms_15; SGroup 8252 14 syms_17]);
   (158364, 20, [AGroup 5 1 [sym_ppDirective]; AGroup 15791 1 [anon_sym_LBRACK];
     AGroup 15793 1 [anon_sym_LPAREN]; AGroup 15797 1 [anon_sym_POUND];
     AGroup 15811 1 [sym_kSpecialize]; AGroup 15815 1 [sym_kIf]; AGroup 15817 1 [sym_kInherited];
     AGroup 17716 1 [sym_kString]; AGroup 3 2 syms_5; AGroup 15795 2 syms_6;
     AGroup 15799 2 syms_7; AGroup 15801 2 syms_8; AGroup 15803 2 syms_9; AGroup 15805 2 syms_10;
     AGroup 15813 2 syms_11; SGroup 8765 2 syms_12; SGroup 7328 3 syms_13; SGroup 8265 4 syms_14;
     AGroup 15807 5 syms_15; SGroup 8252 14 syms_17]);
   (158455, 21, [AGroup 5 1 [sym_ppDirective]; AGroup 15791 1 [anon_sym_LBRACK];
     AGroup 15793 1 [anon_sym_LPAREN]; AGroup 15797 1 [anon_sym_POUND]; AGroup 15805 1 [sym_kAt];
     AGroup 15811 1 [sym_kSpecialize]; AGroup 15815 1 [sym_kIf]; AGroup 15817 1 [sym_kInherited];
     AGroup 17716 1 [sym_kString]; AGroup 18217 1 [sym_kNot]; AGroup 3 2 syms_5;
     AGroup 15795 2 syms_6; AGroup 15799 2 syms_7; AGroup 15801 2 syms_8; AGroup 15803 2 syms_9;
     AGroup 15813 2 syms_11; SGroup 8765 2 syms_12; SGroup 7328 3 syms_13; SGroup 8265 4 syms_14;
     AGroup 15807 5 syms_15; SGroup 8252 14 syms_17]);
   (158548, 20, [AGroup 5 1 [sym_ppDirective]; AGroup 15791 1 [anon_sym_LBRACK];
     AGroup 15793 1 [anon_sym_LPAREN]; AGroup 15797 1 [anon_sym_POUND];
     AGroup 15811 1 [sym_kSpecialize]; AGroup 15815 1 [sym_kIf]; AGroup 15817 1 [sym_kInherited];
     AGroup 17716 1 [sym_kString]; AGroup 3 2 syms_5; AGroup 15795 2 syms_6;
     AGroup 15799 2 syms_7; AGroup 15801 2 syms_8; AGroup 15803 2 syms_9; AGroup 15805 2 syms_10;
     AGroup 15813 2 syms_11; SGroup 8765 2 syms_12; SGroup 7328 3 syms_13; SGroup 8266 4 syms_14;
     AGroup 15807 5 syms_15; SGroup 8252 14 syms_17]);
   (158639, 20, [AGroup 5 1 [sym_ppDirective]; AGroup 15755 1 [sym_kIf]; AGroup 15791 1 [anon_sym_LBRACK];
     AGroup 15793 1 [anon_sym_LPAREN]; AGroup 15797 1 [anon_sym_POUND];
     AGroup 15811 1 [sym_kSpecialize]; AGroup 15817 1 [sym_kInherited];
     AGroup 17716 1 [sym_kString]; AGroup 3 2 syms_5; AGroup 15747 2 syms_9;
     AGroup 15749 2 syms_10; AGroup 15795 2 syms_6; AGroup 15799 2 syms_7; AGroup 15801 2 syms_8;
     AGroup 15813 2 syms_11; SGroup 8765 2 syms_12; SGroup 7328 3 syms_13;
     SGroup 10292 4 syms_14; AGroup 18219 5 syms_15; SGroup 8268 14 syms_17])
  ].

(** States 4459 to 4558. *)
Definition small_runs_4459 : list small_run :=
  [
   (158730, 20, [AGroup 5 1 [sym_ppDirective]; AGroup 15647 1 [anon_sym_LBRACK];
     AGroup 15653 1 [anon_sym_POUND]; AGroup 15667 1 [sym_kSpecialize];
     AGroup 15673 1 [sym_kInherited]; AGroup 15675 1 [sym_kString];
     AGroup 15745 1 [anon_sym_LPAREN]; AGroup 15755 1 [sym_kIf]; AGroup 3 2 syms_5;
     AGroup 15651 2 syms_6; AGroup 15655 2 syms_7; AGroup 15657 2 syms_8; AGroup 15669 2 syms_11;
     AGroup 15747 2 syms_9; AGroup 15749 2 syms_10; SGroup 8129 2 syms_12; SGroup 7100 3 syms_13;
     SGroup 10347 4 syms_14; AGroup 18221 5 syms_15; SGroup 7863 14 syms_17]);
   (158821, 20, [AGroup 5 1 [sym_ppDirective]; AGroup 15791 1 [anon_sym_LBRACK];
     AGroup 15793 1 [anon_sym_LPAREN]; AGroup 15797 1 [anon_sym_POUND];
     AGroup 15811 1 [sym_kSpecialize]; AGroup 15815 1 [sym_kIf]; AGroup 15817 1 [sym_kInherited];
     AGroup 17716 1 [sym_kString]; AGroup 3 2 syms_5; AGroup 15795 2 syms_6;
     AGroup 15799 2 syms_7; AGroup 15801 2 syms_8; AGroup 15803 2 syms_9; AGroup 15805 2 syms_10;
     AGroup 15813 2 syms_11; SGroup 8765 2 syms_12; SGroup 7328 3 syms_13; SGroup 8273 4 syms_14;
     AGroup 15807 5 syms_15; SGroup 8252 14 syms_17]);
   (158912, 20, [AGroup 5 1 [sym_ppDirective]; AGroup 16375 1 [anon_sym_LBRACK];
     AGroup 16377 1 [anon_sym_LPAREN]; AGroup 16381 1 [anon_sym_POUND];
     AGroup 16395 1 [sym_kSpecialize]; AGroup 16399 1 [sym_kIf]; AGroup 16401 1 [sym_kInherited];
     AGroup 17434 1 [sym_kString]; AGroup 3 2 syms_5; AGroup 16379 2 syms_6;
     AGroup 16383 2 syms_7; AGroup 16385 2 syms_8; AGroup 16387 2 syms_9; AGroup 16389 2 syms_10;
     AGroup 16397 2 syms_11; SGroup 8530 2 syms_12; SGroup 7169 3 syms_13; SGroup 9100 4 syms_14;
     AGroup 16391 5 syms_15; SGroup 8170 14 syms_17]);
   (159003, 20, [AGroup 5 1 [sym_ppDirective]; AGroup 16569 1 [anon_sym_LBRACK];
     AGroup 16571 1 [anon_sym_LPAREN]; AGroup 16575 1 [anon_sym_POUND];
     AGroup 16589 1 [sym_kSpecialize]; AGroup 16593 1 [sym_kIf]; AGroup 16595 1 [sym_kInherited];
     AGroup 17788 1 [sym_kString]; AGroup 3 2 syms_5; AGroup 16573 2 syms_6;
     AGroup 16577 2 syms_7; AGroup 16579 2 syms_8; AGroup 16581 2 syms_9; AGroup 16583 2 syms_10;
     AGroup 16591 2 syms_11; SGroup 8889 2 syms_12; SGroup 7286 3 syms_13; SGroup 8526 4 syms_14;
     AGroup 16585 5 syms_15; SGroup 8506 14 syms_17]);
   (159094, 20, [AGroup 5 1 [sym_ppDirective]; AGroup 16337 1 [anon_sym_LBRACK];
     AGroup 16339 1 [anon_sym_LPAREN]; AGroup 16343 1 [anon_sym_POUND];
     AGroup 16357 1 [sym_kSpecialize]; AGroup 16361 1 [sym_kIf]; AGroup 16363 1 [sym_kInherited];
     AGroup 17202 1 [sym_kString]; AGroup 3 2 syms_5; AGroup 16341 2 syms_6;
     AGroup 16345 2 syms_7; AGroup 16347 2 syms_8; AGroup 16349 2 syms_9; AGroup 16351 2 syms_10;
     AGroup 16359 2 syms_11; SGroup 7828 2 syms_12; SGroup 7011 3 syms_13; SGroup 8509 4 syms_14;
     AGroup 16353 5 syms_15; SGroup 7566 14 syms_17]);
   (159185, 20, [AGroup 5 1 [sym_ppDirective]; AGroup 16375 1 [anon_sym_LBRACK];
     AGroup 16377 1 [anon_sym_LPAREN]; AGroup 16381 1 [anon_sym_POUND];
     AGroup 16395 1 [sym_kSpecialize]; AGroup 16399 1 [sym_kIf]; AGroup 16401 1 [sym_kInherited];
     AGroup 17434 1 [sym_kString]; AGroup 3 2 syms_5; AGroup 16379 2 syms_6;
     AGroup 16383 2 syms_7; AGroup 16385 2 syms_8; AGroup 16387 2 syms_9; AGroup 16389 2 syms_10;
     AGroup 16397 2 syms_11; SGroup 8530 2 syms_12; SGroup 7169 3 syms_13; SGroup 9197 4 syms_14;
     AGroup 16391 5 syms_15; SGroup 8170 14 syms_17]);
   (159276, 20, [AGroup 5 1 [sym_ppDirective]; AGroup 16375 1 [anon_sym_LBRACK];
     AGroup 16377 1 [anon_sym_LPAREN]; AGroup 16381 1 [anon_sym_POUND];
     AGroup 16395 1 [sym_kSpecialize]; AGroup 16399 1 [sym_kIf]; AGroup 16401 1 [sym_kInherited];
     AGroup 17434 1 [sym_kString]; AGroup 3 2 syms_5; AGroup 16379 2 syms_6;
     AGroup 16383 2 syms_7; AGroup 16385 2 syms_8; AGroup 16387 2 syms_9; AGroup 16389 2 syms_10;
     AGroup 16397 2 syms_11; SGroup 8530 2 syms_12; SGroup 7169 3 syms_13; SGroup 9198 4 syms_14;
     AGroup 16391 5 syms_15; SGroup 8170 14 syms_17]);
   (159367, 8, [AGroup 5 1 [sym_ppDirective]; AGroup 3 2 syms_5; SGroup 7570 2 syms_12;
     SGroup 6915 3 syms_13; SGroup 7441 4 syms_14; AGroup 18189 5 syms_150;
     SGroup 7533 14 syms_17; AGroup 18187 19 syms_151]);
   (159434, 20, [AGroup 5 1 [sym_ppDirective]; AGroup 16405 1 [anon_sym_LBRACK];
     AGroup 16407 1 [anon_sym_LPAREN]; AGroup 16411 1 [anon_sym_POUND];
     AGroup 16425 1 [sym_kSpecialize]; AGroup 16429 1 [sym_kIf]; AGroup 16431 1 [sym_kInherited];
     AGroup 18223 1 [sym_kString]; AGroup 3 2 syms_5; AGroup 16409 2 syms_6;
     AGroup 16413 2 syms_7; AGroup 16415 2 syms_8; AGroup 16417 2 syms_9; AGroup 16419 2 syms_10;
     AGroup 16427 2 syms_11; SGroup 9247 2 syms_12; SGroup 7508 3 syms_13; SGroup 9690 4 syms_14;
     AGroup 16421 5 syms_15; SGroup 8844 14 syms_17]);
   (159525, 20, [AGroup 5 1 [sym_ppDirective]; AGroup 15647 1 [anon_sym_LBRACK];
     AGroup 15653 1 [anon_sym_POUND]; AGroup 15667 1 [sym_kSpecialize];
     AGroup 15673 1 [sym_kInherited]; AGroup 15675 1 [sym_kString];
     AGroup 15745 1 [anon_sym_LPAREN]; AGroup 15755 1 [sym_kIf]; AGroup 3 2 syms_5;
     AGroup 15651 2 syms_6; AGroup 15655 2 syms_7; AGroup 15657 2 syms_8; AGroup 15669 2 syms_11;
     AGroup 15747 2 syms_9; AGroup 15749 2 syms_10; SGroup 8129 2 syms_12; SGroup 7100 3 syms_13;
     SGroup 9730 4 syms_14; AGroup 15751 5 syms_15; SGroup 8464 14 syms_17]);
   (159616, 20, [AGroup 5 1 [sym_ppDirective]; AGroup 15791 1 [anon_sym_LBRACK];
     AGroup 15793 1 [anon_sym_LPAREN]; AGroup 15797 1 [anon_sym_POUND];
     AGroup 15811 1 [sym_kSpecialize]; AGroup 15815 1 [sym_kIf]; AGroup 15817 1 [sym_kInherited];
     AGroup 17716 1 [sym_kString]; AGroup 3 2 syms_5; AGroup 15795 2 syms_6;
     AGroup 15799 2 syms_7; AGroup 15801 2 syms_8; AGroup 15803 2 syms_9; AGroup 15805 2 syms_10;
     AGroup 15813 2 syms_11; SGroup 8765 2 syms_12; SGroup 7328 3 syms_13; SGroup 8281 4 syms_14;
     AGroup 15807 5 syms_15; SGroup 8252 14 syms_17]);
   (159707, 20, [AGroup 5 1 [sym_ppDirective]; AGroup 16435 1 [anon_sym_LBRACK];
     AGroup 16437 1 [anon_sym_LPAREN]; AGroup 16441 1 [anon_sym_POUND];
     AGroup 16455 1 [sym_kSpecialize]; AGroup 16459 1 [sym_kIf]; AGroup 16461 1 [sym_kInherited];
     AGroup 17540 1 [sym_kString]; AGroup 3 2 syms_5; AGroup 16439 2 syms_6;
     AGroup 16443 2 syms_7; AGroup 16445 2 syms_8; AGroup 16447 2 syms_9; AGroup 16449 2 syms_10;
     AGroup 16457 2 syms_11; SGroup 8859 2 syms_12; SGroup 7280 3 syms_13; SGroup 9599 4 syms_14;
     AGroup 16451 5 syms_15; SGroup 8207 14 syms_17]);
   (159798, 20, [AGroup 5 1 [sym_ppDirective]; AGroup 15831 1 [anon_sym_LBRACK];
     AGroup 15833 1 [anon_sym_LPAREN]; AGroup 15837 1 [anon_sym_POUND];
     AGroup 15851 1 [sym_kSpecialize]; AGroup 15855 1 [sym_kIf]; AGroup 15857 1 [sym_kInherited];
     AGroup 17312 1 [sym_kString]; AGroup 3 2 syms_5; AGroup 15835 2 syms_6;
     AGroup 15839 2 syms_7; AGroup 15841 2 syms_8; AGroup 15843 2 syms_9; AGroup 15845 2 syms_10;
     AGroup 15853 2 syms_11; SGroup 9267 2 syms_12; SGroup 7556 3 syms_13; SGroup 9794 4 syms_14;
     AGroup 15847 5 syms_15; SGroup 8649 14 syms_17]);
   (159889, 20, [AGroup 5 1 [sym_ppDirective]; AGroup 16435 1 [anon_sym_LBRACK];
     AGroup 16437 1 [anon_sym_LPAREN]; AGroup 16441 1 [anon_sym_POUND];
     AGroup 16455 1 [sym_kSpecialize]; AGroup 16459 1 [sym_kIf]; AGroup 16461 1 [sym_kInherited];
     AGroup 17540 1 [sym_kString]; AGroup 3 2 syms_5; AGroup 16439 2 syms_6;
     AGroup 16443 2 syms_7; AGroup 16445 2 syms_8; AGroup 16447 2 syms_9; AGroup 16449 2 syms_10;
     AGroup 16457 2 syms_11; SGroup 8859 2 syms_12; SGroup 7280 3 syms_13; SGroup 9504 4 syms_14;
     AGroup 16451 5 syms_15; SGroup 8207 14 syms_17]);
   (159980, 20, [AGroup 5 1 [sym_ppDirective]; AGroup 16435 1 [anon_sym_LBRACK];
     AGroup 16437 1 [anon_sym_LPAREN]; AGroup 16441 1 [anon_sym_POUND];
     AGroup 16455 1 [sym_kSpecialize]; AGroup 16459 1 [sym_kIf]; AGroup 16461 1 [sym_kInherited];
     AGroup 17540 1 [sym_kString]; AGroup 3 2 syms_5; AGroup 16439 2 syms_6;
     AGroup 16443 2 syms_7; AGroup 16445 2 syms_8; AGroup 16447 2 syms_9; AGroup 16449 2 syms_10;
     AGroup 16457 2 syms_11; SGroup 8859 2 syms_12; SGroup 7280 3 syms_13; SGroup 9526 4 syms_14;
     AGroup 16451 5 syms_15; SGroup 8207 14 syms_17]);
   (160071, 8, [AGroup 5 1 [sym_ppDirective]; AGroup 3 2 syms_5; SGroup 7426 2 syms_12;
     SGroup 6541 3 syms_13; SGroup 7309 4 syms_14; AGroup 18189 5 syms_150;
     SGroup 7259 14 syms_17; AGroup 18187 19 syms_151]);
   (160138, 20, [AGroup 5 1 [sym_ppDirective]; AGroup 15925 1 [anon_sym_LBRACK];
     AGroup 15927 1 [anon_sym_LPAREN]; AGroup 15931 1 [anon_sym_POUND];
     AGroup 15945 1 [sym_kSpecialize]; AGroup 15949 1 [sym_kIf]; AGroup 15951 1 [sym_kInherited];
     AGroup 17248 1 [sym_kString]; AGroup 3 2 syms_5; AGroup 15929 2 syms_6;
     AGroup 15933 2 syms_7; AGroup 15935 2 syms_8; AGroup 15937 2 syms_9; AGroup 15939 2 syms_10;
     AGroup 15947 2 syms_11; SGroup 9150 2 syms_12; SGroup 7490 3 syms_13; SGroup 9647 4 syms_14;
     AGroup 15941 5 syms_15; SGroup 8764 14 syms_17]);
   (160229, 20, [AGroup 5 1 [sym_ppDirective]; AGroup 15925 1 [anon_sym_LBRACK];
     AGroup 15927 1 [anon_sym_LPAREN]; AGroup 15931 1 [anon_sym_POUND];
     AGroup 15945 1 [sym_kSpecialize]; AGroup 15949 1 [sym_kIf]; AGroup 15951 1 [sym_kInherited];
     AGroup 17248 1 [sym_kString]; AGroup 3 2 syms_5; AGroup 15929 2 syms_6;
     AGroup 15933 2 syms_7; AGroup 15935 2 syms_8; AGroup 15937 2 syms_9; AGroup 15939 2 syms_10;
     AGroup 15947 2 syms_11; SGroup 9150 2 syms_12; SGroup 7490 3 syms_13; SGroup 8719 4 syms_14;
     AGroup 15941 5 syms_15; SGroup 8764 14 syms_17]);
   (160320, 10, [AGroup 18228 1 [sym_kDispId]; AGroup 18231 1 [sym_kPublic]; AGroup 18234 1 [sym_kMessage];
     AGroup 18237 1 [sym_kDeprecated]; AGroup 18240 1 [sym_kExport]; AGroup 18243 1 [sym_kAlias];
     SGroup 4477 1 [aux_sym__procAttributeNoExt_repeat2]; SGroup 14675 1 [sym_procAttribute];
     AGroup 3 3 syms_1; AGroup 18225 39 syms_33]);
   (160391, 20, [AGroup 5 1 [sym_ppDirective]; AGroup 15647 1 [anon_sym_LBRACK];
     AGroup 15653 1 [anon_sym_POUND]; AGroup 15667 1 [sym_kSpecialize];
     AGroup 15673 1 [sym_kInherited]; AGroup 15675 1 [sym_kString];
     AGroup 15745 1 [anon_sym_LPAREN]; AGroup 15755 1 [sym_kIf]; AGroup 3 2 syms_5;
     AGroup 15651 2 syms_6; AGroup 15655 2 syms_7; AGroup 15657 2 syms_8; AGroup 15669 2 syms_11;
     AGroup 15747 2 syms_9; AGroup 15749 2 syms_10; SGroup 8129 2 syms_12; SGroup 7100 3 syms_13;
     SGroup 9773 4 syms_14; AGroup 15751 5 syms_15; SGroup 8464 14 syms_17]);
   (160482, 20, [AGroup 5 1 [sym_ppDirective]; AGroup 15925 1 [anon_sym_LBRACK];
     AGroup 15927 1 [anon_sym_LPAREN]; AGroup 15931 1 [anon_sym_POUND];
     AGroup 15945 1 [sym_kSpecialize]; AGroup 15949 1 [sym_kIf]; AGroup 15951 1 [sym_kInherited];
     AGroup 17248 1 [sym_kString]; AGroup 3 2 syms_5; AGroup 15929 2 syms_6;
     AGroup 15933 2 syms_7; AGroup 15935 2 syms_8; AGroup 15937 2 syms_9; AGroup 15939 2 syms_10;
     AGroup 15947 2 syms_11; SGroup 9150 2 syms_12; SGroup 7490 3 syms_13; SGroup 8770 4 syms_14;
     AGroup 15941 5 syms_15; SGroup 8764 14 syms_17]);
   (160573, 20, [AGroup 5 1 [sym_ppDirective]; AGroup 15925 1 [anon_sym_LBRACK];
     AGroup 15927 1 [anon_sym_LPAREN]; AGroup 15931 1 [anon_sym_POUND];
     AGroup 15945 1 [sym_kSpecialize]; AGroup 15949 1 [sym_kIf]; AGroup 15951 1 [sym_kInherited];
     AGroup 17248 1 [sym_kString]; AGroup 3 2 syms_5; AGroup 15929 2 syms_6;
     AGroup 15933 2 syms_7; AGroup 15935 2 syms_8; AGroup 15937 2 syms_9; AGroup 15939 2 syms_10;
     AGroup 15947 2 syms_11; SGroup 9150 2 syms_12; SGroup 7490 3 syms_13; SGroup 8771 4 syms_14;
     AGroup 15941 5 syms_15; SGroup 8764 14 syms_17]);
   (160664, 20, [AGroup 5 1 [sym_ppDirective]; AGroup 15925 1 [anon_sym_LBRACK];
     AGroup 15927 1 [anon_sym_LPAREN]; AGroup 15931 1 [anon_sym_POUND];
     AGroup 15945 1 [sym_kSpecialize]; AGroup 15949 1 [sym_kIf]; AGroup 15951 1 [sym_kInherited];
     AGroup 17248 1 [sym_kString]; AGroup 3 2 syms_5; AGroup 15929 2 syms_6;
     AGroup 15933 2 syms_7; AGroup 15935 2 syms_8; AGroup 15937 2 syms_9; AGroup 15939 2 syms_10;
     AGroup 15947 2 syms_11; SGroup 9150 2 syms_12; SGroup 7490 3 syms_13; SGroup 8772 4 syms_14;
     AGroup 15941 5 syms_15; SGroup 8764 14 syms_17]);
   (160755, 21, [AGroup 5 1 [sym_ppDirective]; AGroup 15925 1 [anon_sym_LBRACK];
     AGroup 15927 1 [anon_sym_LPAREN]; AGroup 15931 1 [anon_sym_POUND]; AGroup 15939 1 [sym_kAt];
     AGroup 15945 1 [sym_kSpecialize]; AGroup 15949 1 [sym_kIf]; AGroup 15951 1 [sym_kInherited];
     AGroup 17248 1 [sym_kString]; AGroup 18246 1 [sym_kNot]; AGroup 3 2 syms_5;
     AGroup 15929 2 syms_6; AGroup 15933 2 syms_7; AGroup 15935 2 syms_8; AGroup 15937 2 syms_9;
     AGroup 15947 2 syms_11; SGroup 9150 2 syms_12; SGroup 7490 3 syms_13; SGroup 8772 4 syms_14;
     AGroup 15941 5 syms_15; SGroup 8764 14 syms_17]);
   (160848, 20, [AGroup 5 1 [sym_ppDirective]; AGroup 16469 1 [anon_sym_LBRACK];
     AGroup 16471 1 [anon_sym_LPAREN]; AGroup 16475 1 [anon_sym_POUND];
     AGroup 16489 1 [sym_kSpecialize]; AGroup 16493 1 [sym_kIf]; AGroup 16495 1 [sym_kInherited];
     AGroup 17602 1 [sym_kString]; AGroup 3 2 syms_5; AGroup 16473 2 syms_6;
     AGroup 16477 2 syms_7; AGroup 16479 2 syms_8; AGroup 16481 2 syms_9; AGroup 16483 2 syms_10;
     AGroup 16491 2 syms_11; SGroup 8445 2 syms_12; SGroup 7193 3 syms_13; SGroup 9213 4 syms_14;
     AGroup 16485 5 syms_15; SGroup 7957 14 syms_17]);
   (160939, 20, [AGroup 5 1 [sym_ppDirective]; AGroup 15925 1 [anon_sym_LBRACK];
     AGroup 15927 1 [anon_sym_LPAREN]; AGroup 15931 1 [anon_sym_POUND];
     AGroup 15945 1 [sym_kSpecialize]; AGroup 15949 1 [sym_kIf]; AGroup 15951 1 [sym_kInherited];
     AGroup 17248 1 [sym_kString]; AGroup 3 2 syms_5; AGroup 15929 2 syms_6;
     AGroup 15933 2 syms_7; AGroup 15935 2 syms_8; AGroup 15937 2 syms_9; AGroup 15939 2 syms_10;
     AGroup 15947 2 syms_11; SGroup 9150 2 syms_12; SGroup 7490 3 syms_13; SGroup 8773 4 syms_14;
     AGroup 15941 5 syms_15; SGroup 8764 14 syms_17]);
   (161030, 20, [AGroup 5 1 [sym_ppDirective]; AGroup 16375 1 [anon_sym_LBRACK];
     AGroup 16377 1 [anon_sym_LPAREN]; AGroup 16381 1 [anon_sym_POUND];
     AGroup 16395 1 [sym_kSpecialize]; AGroup 16399 1 [sym_kIf]; AGroup 16401 1 [sym_kInherited];
     AGroup 17434 1 [sym_kString]; AGroup 3 2 syms_5; AGroup 16379 2 syms_6;
     AGroup 16383 2 syms_7; AGroup 16385 2 syms_8; AGroup 16387 2 syms_9; AGroup 16389 2 syms_10;
     AGroup 16397 2 syms_11; SGroup 8530 2 syms_12; SGroup 7169 3 syms_13; SGroup 9227 4 syms_14;
     AGroup 16391 5 syms_15; SGroup 8170 14 syms_17]);
   (161121, 20, [AGroup 5 1 [sym_ppDirective]; AGroup 15755 1 [sym_kIf]; AGroup 15925 1 [anon_sym_LBRACK];
     AGroup 15927 1 [anon_sym_LPAREN]; AGroup 15931 1 [anon_sym_POUND];
     AGroup 15945 1 [sym_kSpecialize]; AGroup 15951 1 [sym_kInherited];
     AGroup 17248 1 [sym_kString]; AGroup 3 2 syms_5; AGroup 15747 2 syms_9;
     AGroup 15749 2 syms_10; AGroup 15929 2 syms_6; AGroup 15933 2 syms_7; AGroup 15935 2 syms_8;
     AGroup 15947 2 syms_11; SGroup 9150 2 syms_12; SGroup 7490 3 syms_13;
     SGroup 10339 4 syms_14; AGroup 18248 5 syms_15; SGroup 8774 14 syms_17]);
   (161212, 20, [AGroup 5 1 [sym_ppDirective]; AGroup 16469 1 [anon_sym_LBRACK];
     AGroup 16471 1 [anon_sym_LPAREN]; AGroup 16475 1 [anon_sym_POUND];
     AGroup 16489 1 [sym_kSpecialize]; AGroup 16493 1 [sym_kIf]; AGroup 16495 1 [sym_kInherited];
     AGroup 17602 1 [sym_kString]; AGroup 3 2 syms_5; AGroup 16473 2 syms_6;
     AGroup 16477 2 syms_7; AGroup 16479 2 syms_8; AGroup 16481 2 syms_9; AGroup 16483 2 syms_10;
     AGroup 16491 2 syms_11; SGroup 8445 2 syms_12; SGroup 7193 3 syms_13; SGroup 9288 4 syms_14;
     AGroup 16485 5 syms_15; SGroup 7957 14 syms_17]);
   (161303, 20, [AGroup 5 1 [sym_ppDirective]; AGroup 16469 1 [anon_sym_LBRACK];
     AGroup 16471 1 [anon_sym_LPAREN]; AGroup 16475 1 [anon_sym_POUND];
     AGroup 16489 1 [sym_kSpecialize]; AGroup 16493 1 [sym_kIf]; AGroup 16495 1 [sym_kInherited];
     AGroup 17602 1 [sym_kString]; AGroup 3 2 syms_5; AGroup 16473 2 syms_6;
     AGroup 16477 2 syms_7; AGroup 16479 2 syms_8; AGroup 16481 2 syms_9; AGroup 16483 2 syms_10;
     AGroup 16491 2 syms_11; SGroup 8445 2 syms_12; SGroup 7193 3 syms_13; SGroup 9290 4 syms_14;
     AGroup 16485 5 syms_15; SGroup 7957 14 syms_17]);
   (161394, 8, [AGroup 5 1 [sym_ppDirective]; AGroup 3 2 syms_5; SGroup 9180 2 syms_12;
     SGroup 7467 3 syms_13; SGroup 9190 4 syms_14; AGroup 18189 5 syms_150;
     SGroup 9076 14 syms_17; AGroup 18187 19 syms_151]);
   (161461, 20, [AGroup 5 1 [sym_ppDirective]; AGroup 15761 1 [anon_sym_LBRACK];
     AGroup 15763 1 [anon_sym_LPAREN]; AGroup 15767 1 [anon_sym_POUND];
     AGroup 15781 1 [sym_kSpecialize]; AGroup 15787 1 [sym_kInherited]; AGroup 16229 1 [sym_kIf];
     AGroup 17864 1 [sym_kString]; AGroup 3 2 syms_5; AGroup 15765 2 syms_6;
     AGroup 15769 2 syms_7; AGroup 15771 2 syms_8; AGroup 15783 2 syms_11; AGroup 16221 2 syms_9;
     AGroup 16223 2 syms_10; SGroup 9180 2 syms_12; SGroup 7467 3 syms_13;
     SGroup 10153 4 syms_14; AGroup 16225 5 syms_15; SGroup 9076 14 syms_17]);
   (161552, 20, [AGroup 5 1 [sym_ppDirective]; AGroup 15647 1 [anon_sym_LBRACK];
     AGroup 15653 1 [anon_sym_POUND]; AGroup 15667 1 [sym_kSpecialize];
     AGroup 15673 1 [sym_kInherited]; AGroup 15675 1 [sym_kString];
     AGroup 15745 1 [anon_sym_LPAREN]; AGroup 15755 1 [sym_kIf]; AGroup 3 2 syms_5;
     AGroup 15651 2 syms_6; AGroup 15655 2 syms_7; AGroup 15657 2 syms_8; AGroup 15669 2 syms_11;
     AGroup 15747 2 syms_9; AGroup 15749 2 syms_10; SGroup 8129 2 syms_12; SGroup 7100 3 syms_13;
     SGroup 10313 4 syms_14; AGroup 18250 5 syms_15; SGroup 9104 14 syms_17]);
   (161643, 20, [AGroup 5 1 [sym_ppDirective]; AGroup 16405 1 [anon_sym_LBRACK];
     AGroup 16407 1 [anon_sym_LPAREN]; AGroup 16411 1 [anon_sym_POUND];
     AGroup 16425 1 [sym_kSpecialize]; AGroup 16429 1 [sym_kIf]; AGroup 16431 1 [sym_kInherited];
     AGroup 18223 1 [sym_kString]; AGroup 3 2 syms_5; AGroup 16409 2 syms_6;
     AGroup 16413 2 syms_7; AGroup 16415 2 syms_8; AGroup 16417 2 syms_9; AGroup 16419 2 syms_10;
     AGroup 16427 2 syms_11; SGroup 9247 2 syms_12; SGroup 7508 3 syms_13; SGroup 9756 4 syms_14;
     AGroup 16421 5 syms_15; SGroup 8844 14 syms_17]);
   (161734, 20, [AGroup 5 1 [sym_ppDirective]; AGroup 15647 1 [anon_sym_LBRACK];
     AGroup 15653 1 [anon_sym_POUND]; AGroup 15667 1 [sym_kSpecialize];
     AGroup 15673 1 [sym_kInherited]; AGroup 15675 1 [sym_kString];
     AGroup 15745 1 [anon_sym_LPAREN]; AGroup 15755 1 [sym_kIf]; AGroup 3 2 syms_5;
     AGroup 15651 2 syms_6; AGroup 15655 2 syms_7; AGroup 15657 2 syms_8; AGroup 15669 2 syms_11;
     AGroup 15747 2 syms_9; AGroup 15749 2 syms_10; SGroup 8129 2 syms_12; SGroup 7100 3 syms_13;
     SGroup 10313 4 syms_14; AGroup 18252 5 syms_15; SGroup 9111 14 syms_17]);
   (161825, 20, [AGroup 5 1 [sym_ppDirective]; AGroup 15647 1 [anon_sym_LBRACK];
     AGroup 15653 1 [anon_sym_POUND]; AGroup 15667 1 [sym_kSpecialize];
     AGroup 15673 1 [sym_kInherited]; AGroup 15675 1 [sym_kString];
     AGroup 15745 1 [anon_sym_LPAREN]; AGroup 15755 1 [sym_kIf]; AGroup 3 2 syms_5;
     AGroup 15651 2 syms_6; AGroup 15655 2 syms_7; AGroup 15657 2 syms_8; AGroup 15669 2 syms_11;
     AGroup 15747 2 syms_9; AGroup 15749 2 syms_10; SGroup 8129 2 syms_12; SGroup 7100 3 syms_13;
     SGroup 9635 4 syms_14; AGroup 15751 5 syms_15; SGroup 8464 14 syms_17]);
   (161916, 20, [AGroup 5 1 [sym_ppDirective]; AGroup 15925 1 [anon_sym_LBRACK];
     AGroup 15927 1 [anon_sym_LPAREN]; AGroup 15931 1 [anon_sym_POUND];
     AGroup 15945 1 [sym_kSpecialize]; AGroup 15949 1 [sym_kIf]; AGroup 15951 1 [sym_kInherited];
     AGroup 17248 1 [sym_kString]; AGroup 3 2 syms_5; AGroup 15929 2 syms_6;
     AGroup 15933 2 syms_7; AGroup 15935 2 syms_8; AGroup 15937 2 syms_9; AGroup 15939 2 syms_10;
     AGroup 15947 2 syms_11; SGroup 9150 2 syms_12; SGroup 7490 3 syms_13; SGroup 8777 4 syms_14;
     AGroup 15941 5 syms_15; SGroup 8764 14 syms_17]);
   (162007, 20, [AGroup 5 1 [sym_ppDirective]; AGroup 16071 1 [anon_sym_LBRACK];
     AGroup 16073 1 [anon_sym_LPAREN]; AGroup 16077 1 [anon_sym_POUND];
     AGroup 16091 1 [sym_kSpecialize]; AGroup 16095 1 [sym_kIf]; AGroup 16097 1 [sym_kInherited];
     AGroup 17710 1 [sym_kString]; AGroup 3 2 syms_5; AGroup 16075 2 syms_6;
     AGroup 16079 2 syms_7; AGroup 16081 2 syms_8; AGroup 16083 2 syms_9; AGroup 16085 2 syms_10;
     AGroup 16093 2 syms_11; SGroup 8930 2 syms_12; SGroup 7257 3 syms_13; SGroup 8392 4 syms_14;
     AGroup 16087 5 syms_15; SGroup 8310 14 syms_17]);
   (162098, 20, [AGroup 5 1 [sym_ppDirective]; AGroup 15987 1 [anon_sym_LBRACK];
     AGroup 15989 1 [anon_sym_LPAREN]; AGroup 15993 1 [anon_sym_POUND];
     AGroup 16007 1 [sym_kSpecialize]; AGroup 16011 1 [sym_kIf]; AGroup 16013 1 [sym_kInherited];
     AGroup 18254 1 [sym_kString]; AGroup 3 2 syms_5; AGroup 15991 2 syms_6;
     AGroup 15995 2 syms_7; AGroup 15997 2 syms_8; AGroup 15999 2 syms_9; AGroup 16001 2 syms_10;
     AGroup 16009 2 syms_11; SGroup 9525 2 syms_12; SGroup 7769 3 syms_13;
     SGroup 10015 4 syms_14; AGroup 16003 5 syms_15; SGroup 9072 14 syms_17]);
   (162189, 20, [AGroup 5 1 [sym_ppDirective]; AGroup 15831 1 [anon_sym_LBRACK];
     AGroup 15833 1 [anon_sym_LPAREN]; AGroup 15837 1 [anon_sym_POUND];
     AGroup 15851 1 [sym_kSpecialize]; AGroup 15855 1 [sym_kIf]; AGroup 15857 1 [sym_kInherited];
     AGroup 17312 1 [sym_kString]; AGroup 3 2 syms_5; AGroup 15835 2 syms_6;
     AGroup 15839 2 syms_7; AGroup 15841 2 syms_8; AGroup 15843 2 syms_9; AGroup 15845 2 syms_10;
     AGroup 15853 2 syms_11; SGroup 9267 2 syms_12; SGroup 7556 3 syms_13; SGroup 9709 4 syms_14;
     AGroup 15847 5 syms_15; SGroup 8649 14 syms_17]);
   (162280, 20, [AGroup 5 1 [sym_ppDirective]; AGroup 16435 1 [anon_sym_LBRACK];
     AGroup 16437 1 [anon_sym_LPAREN]; AGroup 16441 1 [anon_sym_POUND];
     AGroup 16455 1 [sym_kSpecialize]; AGroup 16459 1 [sym_kIf]; AGroup 16461 1 [sym_kInherited];
     AGroup 17540 1 [sym_kString]; AGroup 3 2 syms_5; AGroup 16439 2 syms_6;
     AGroup 16443 2 syms_7; AGroup 16445 2 syms_8; AGroup 16447 2 syms_9; AGroup 16449 2 syms_10;
     AGroup 16457 2 syms_11; SGroup 8859 2 syms_12; SGroup 7280 3 syms_13; SGroup 9562 4 syms_14;
     AGroup 16451 5 syms_15; SGroup 8207 14 syms_17]);
   (162371, 20, [AGroup 5 1 [sym_ppDirective]; AGroup 15831 1 [anon_sym_LBRACK];
     AGroup 15833 1 [anon_sym_LPAREN]; AGroup 15837 1 [anon_sym_POUND];
     AGroup 15851 1 [sym_kSpecialize]; AGroup 15855 1 [sym_kIf]; AGroup 15857 1 [sym_kInherited];
     AGroup 17312 1 [sym_kString]; AGroup 3 2 syms_5; AGroup 15835 2 syms_6;
     AGroup 15839 2 syms_7; AGroup 15841 2 syms_8; AGroup 15843 2 syms_9; AGroup 15845 2 syms_10;
     AGroup 15853 2 syms_11; SGroup 9267 2 syms_12; SGroup 7556 3 syms_13; SGroup 9753 4 syms_14;
     AGroup 15847 5 syms_15; SGroup 8649 14 syms_17]);
   (162462, 20, [AGroup 5 1 [sym_ppDirective]; AGroup 15831 1 [anon_sym_LBRACK];
     AGroup 15833 1 [anon_sym_LPAREN]; AGroup 15837 1 [anon_sym_POUND];
     AGroup 15851 1 [sym_kSpecialize]; AGroup 15855 1 [sym_kIf]; AGroup 15857 1 [sym_kInherited];
     AGroup 17312 1 [sym_kString]; AGroup 3 2 syms_5; AGroup 15835 2 syms_6;
     AGroup 15839 2 syms_7; AGroup 15841 2 syms_8; AGroup 15843 2 syms_9; AGroup 15845 2 syms_10;
     AGroup 15853 2 syms_11; SGroup 9267 2 syms_12; SGroup 7556 3 syms_13; SGroup 9754 4 syms_14;
     AGroup 15847 5 syms_15; SGroup 8649 14 syms_17]);
   (162553, 8, [AGroup 5 1 [sym_ppDirective]; AGroup 3 2 syms_5; SGroup 8466 2 syms_12;
     SGroup 7201 3 syms_13; SGroup 7961 4 syms_14; AGroup 18189 5 syms_150;
     SGroup 7990 14 syms_17; AGroup 18187 19 syms_151]);
   (162620, 31, [AGroup 5 1 [sym_ppDirective]; AGroup 13347 1 [anon_sym_LBRACK];
     AGroup 13351 1 [aux_sym_ppUsesBlock_token1]; AGroup 13365 1 [sym_identifier];
     AGroup 13367 1 [sym_kGeneric]; AGroup 13369 1 [sym_kOperator]; AGroup 13373 1 [sym_kStrict];
     AGroup 13377 1 [sym_kCase]; AGroup 13379 1 [sym_kClass]; AGroup 13391 1 [sym_kProperty];
     AGroup 13395 1 [sym_kType]; AGroup 18256 1 [anon_sym_SEMI]; AGroup 18258 1 [sym_kEnd];
     SGroup 2 1 [sym__ppIf]; SGroup 6354 1 [sym__visibility]; SGroup 9779 1 [sym_ppBlock];
     SGroup 9835 1 [sym__declOperator]; SGroup 10247 1 [sym__declProc];
     SGroup 10617 1 [sym_rttiAttributes]; SGroup 10730 1 [aux_sym_rttiAttributes_repeat2];
     SGroup 13987 1 [aux_sym_genericArg_repeat1]; SGroup 14434 1 [sym_declVariant];
     SGroup 14951 1 [sym__declClass]; AGroup 3 2 syms_5; AGroup 13381 2 syms_65;
     AGroup 13393 2 syms_66; SGroup 5685 2 syms_68; SGroup 10490 3 syms_69;
     AGroup 13383 4 syms_3; AGroup 13371 6 syms_70; SGroup 6150 6 syms_71]);
   (162733, 31, [AGroup 5 1 [sym_ppDirective]; AGroup 13347 1 [anon_sym_LBRACK];
     AGroup 13351 1 [aux_sym_ppUsesBlock_token1]; AGroup 13365 1 [sym_identifier];
     AGroup 13367 1 [sym_kGeneric]; AGroup 13369 1 [sym_kOperator]; AGroup 13373 1 [sym_kStrict];
     AGroup 13377 1 [sym_kCase]; AGroup 13379 1 [sym_kClass]; AGroup 13391 1 [sym_kProperty];
     AGroup 13395 1 [sym_kType]; AGroup 18260 1 [anon_sym_SEMI]; AGroup 18262 1 [sym_kEnd];
     SGroup 2 1 [sym__ppIf]; SGroup 6354 1 [sym__visibility]; SGroup 9779 1 [sym_ppBlock];
     SGroup 9835 1 [sym__declOperator]; SGroup 10247 1 [sym__declProc];
     SGroup 10617 1 [sym_rttiAttributes]; SGroup 10730 1 [aux_sym_rttiAttributes_repeat2];
     SGroup 13987 1 [aux_sym_genericArg_repeat1]; SGroup 14434 1 [sym_declVariant];
     SGroup 15101 1 [sym__declClass]; AGroup 3 2 syms_5; AGroup 13381 2 syms_65;
     AGroup 13393 2 syms_66; SGroup 5685 2 syms_68; SGroup 10490 3 syms_69;
     AGroup 13383 4 syms_3; AGroup 13371 6 syms_70; SGroup 6150 6 syms_71]);
   (162846, 20, [AGroup 5 1 [sym_ppDirective]; AGroup 16101 1 [anon_sym_LBRACK];
     AGroup 16103 1 [anon_sym_LPAREN]; AGroup 16107 1 [anon_sym_POUND];
     AGroup 16121 1 [sym_kSpecialize]; AGroup 16125 1 [sym_kIf]; AGroup 16127 1 [sym_kInherited];
     AGroup 17012 1 [sym_kString]; AGroup 3 2 syms_5; AGroup 16105 2 syms_6;
     AGroup 16109 2 syms_7; AGroup 16111 2 syms_8; AGroup 16113 2 syms_9; AGroup 16115 2 syms_10;
     AGroup 16123 2 syms_11; SGroup 8060 2 syms_12; SGroup 7068 3 syms_13; SGroup 7809 4 syms_14;
     AGroup 16117 5 syms_15; SGroup 7822 14 syms_17]);
   (162937, 31, [AGroup 5 1 [sym_ppDirective]; AGroup 13347 1 [anon_sym_LBRACK];
     AGroup 13351 1 [aux_sym_ppUsesBlock_token1]; AGroup 13365 1 [sym_identifier];
     AGroup 13367 1 [sym_kGeneric]; AGroup 13369 1 [sym_kOperator]; AGroup 13373 1 [sym_kStrict];
     AGroup 13377 1 [sym_kCase]; AGroup 13379 1 [sym_kClass]; AGroup 13391 1 [sym_kProperty];
     AGroup 13395 1 [sym_kType]; AGroup 18264 1 [anon_sym_SEMI]; AGroup 18266 1 [sym_kEnd];
     SGroup 2 1 [sym__ppIf]; SGroup 6354 1 [sym__visibility]; SGroup 9779 1 [sym_ppBlock];
     SGroup 9835 1 [sym__declOperator]; SGroup 10247 1 [sym__declProc];
     SGroup 10617 1 [sym_rttiAttributes]; SGroup 10730 1 [aux_sym_rttiAttributes_repeat2];
     SGroup 13987 1 [aux_sym_genericArg_repeat1]; SGroup 14434 1 [sym_declVariant];
     SGroup 15191 1 [sym__declClass]; AGroup 3 2 syms_5; AGroup 13381 2 syms_65;
     AGroup 13393 2 syms_66; SGroup 5685 2 syms_68; SGroup 10490 3 syms_69;
     AGroup 13383 4 syms_3; AGroup 13371 6 syms_70; SGroup 6150 6 syms_71]);
   (163050, 20, [AGroup 5 1 [sym_ppDirective]; AGroup 16131 1 [anon_sym_LBRACK];
     AGroup 16133 1 [anon_sym_LPAREN]; AGroup 16137 1 [anon_sym_POUND];
     AGroup 16151 1 [sym_kSpecialize]; AGroup 16155 1 [sym_kIf]; AGroup 16157 1 [sym_kInherited];
     AGroup 17420 1 [sym_kString]; AGroup 3 2 syms_5; AGroup 16135 2 syms_6;
     AGroup 16139 2 syms_7; AGroup 16141 2 syms_8; AGroup 16143 2 syms_9; AGroup 16145 2 syms_10;
     AGroup 16153 2 syms_11; SGroup 8630 2 syms_12; SGroup 7260 3 syms_13; SGroup 9436 4 syms_14;
     AGroup 16147 5 syms_15; SGroup 8446 14 syms_17]);
   (163141, 20, [AGroup 5 1 [sym_ppDirective]; AGroup 16021 1 [anon_sym_LBRACK];
     AGroup 16023 1 [anon_sym_LPAREN]; AGroup 16027 1 [anon_sym_POUND];
     AGroup 16041 1 [sym_kSpecialize]; AGroup 16045 1 [sym_kIf]; AGroup 16047 1 [sym_kInherited];
     AGroup 17344 1 [sym_kString]; AGroup 3 2 syms_5; AGroup 16025 2 syms_6;
     AGroup 16029 2 syms_7; AGroup 16031 2 syms_8; AGroup 16033 2 syms_9; AGroup 16035 2 syms_10;
     AGroup 16043 2 syms_11; SGroup 9151 2 syms_12; SGroup 7393 3 syms_13; SGroup 8766 4 syms_14;
     AGroup 16037 5 syms_15; SGroup 8705 14 syms_17]);
   (163232, 20, [AGroup 5 1 [sym_ppDirective]; AGroup 15925 1 [anon_sym_LBRACK];
     AGroup 15927 1 [anon_sym_LPAREN]; AGroup 15931 1 [anon_sym_POUND];
     AGroup 15945 1 [sym_kSpecialize]; AGroup 15949 1 [sym_kIf]; AGroup 15951 1 [sym_kInherited];
     AGroup 17248 1 [sym_kString]; AGroup 3 2 syms_5; AGroup 15929 2 syms_6;
     AGroup 15933 2 syms_7; AGroup 15935 2 syms_8; AGroup 15937 2 syms_9; AGroup 15939 2 syms_10;
     AGroup 15947 2 syms_11; SGroup 9150 2 syms_12; SGroup 7490 3 syms_13; SGroup 8779 4 syms_14;
     AGroup 15941 5 syms_15; SGroup 8764 14 syms_17]);
   (163323, 20, [AGroup 5 1 [sym_ppDirective]; AGroup 14735 1 [anon_sym_LBRACK];
     AGroup 14737 1 [anon_sym_LPAREN]; AGroup 14741 1 [anon_sym_POUND];
     AGroup 14755 1 [sym_kSpecialize]; AGroup 14759 1 [sym_kIf]; AGroup 14761 1 [sym_kInherited];
     AGroup 14763 1 [sym_kString]; AGroup 3 2 syms_5; AGroup 14739 2 syms_6;
     AGroup 14743 2 syms_7; AGroup 14745 2 syms_8; AGroup 14749 2 syms_9; AGroup 14751 2 syms_10;
     AGroup 14757 2 syms_11; SGroup 3618 2 syms_12; SGroup 2833 3 syms_13; SGroup 2034 4 syms_14;
     AGroup 14753 5 syms_15; SGroup 3466 14 syms_17]);
   (163414, 20, [AGroup 5 1 [sym_ppDirective]; AGroup 16469 1 [anon_sym_LBRACK];
     AGroup 16471 1 [anon_sym_LPAREN]; AGroup 16475 1 [anon_sym_POUND];
     AGroup 16489 1 [sym_kSpecialize]; AGroup 16493 1 [sym_kIf]; AGroup 16495 1 [sym_kInherited];
     AGroup 17602 1 [sym_kString]; AGroup 3 2 syms_5; AGroup 16473 2 syms_6;
     AGroup 16477 2 syms_7; AGroup 16479 2 syms_8; AGroup 16481 2 syms_9; AGroup 16483 2 syms_10;
     AGroup 16491 2 syms_11; SGroup 8445 2 syms_12; SGroup 7193 3 syms_13; SGroup 9030 4 syms_14;
     AGroup 16485 5 syms_15; SGroup 7957 14 syms_17]);
   (163505, 20, [AGroup 5 1 [sym_ppDirective]; AGroup 15647 1 [anon_sym_LBRACK];
     AGroup 15653 1 [anon_sym_POUND]; AGroup 15667 1 [sym_kSpecialize];
     AGroup 15673 1 [sym_kInherited]; AGroup 15675 1 [sym_kString];
     AGroup 15745 1 [anon_sym_LPAREN]; AGroup 15755 1 [sym_kIf]; AGroup 3 2 syms_5;
     AGroup 15651 2 syms_6; AGroup 15655 2 syms_7; AGroup 15657 2 syms_8; AGroup 15669 2 syms_11;
     AGroup 15747 2 syms_9; AGroup 15749 2 syms_10; SGroup 8129 2 syms_12; SGroup 7100 3 syms_13;
     SGroup 9516 4 syms_14; AGroup 15751 5 syms_15; SGroup 8464 14 syms_17]);
   (163596, 20, [AGroup 5 1 [sym_ppDirective]; AGroup 16131 1 [anon_sym_LBRACK];
     AGroup 16133 1 [anon_sym_LPAREN]; AGroup 16137 1 [anon_sym_POUND];
     AGroup 16151 1 [sym_kSpecialize]; AGroup 16155 1 [sym_kIf]; AGroup 16157 1 [sym_kInherited];
     AGroup 17420 1 [sym_kString]; AGroup 3 2 syms_5; AGroup 16135 2 syms_6;
     AGroup 16139 2 syms_7; AGroup 16141 2 syms_8; AGroup 16143 2 syms_9; AGroup 16145 2 syms_10;
     AGroup 16153 2 syms_11; SGroup 8630 2 syms_12; SGroup 7260 3 syms_13; SGroup 9441 4 syms_14;
     AGroup 16147 5 syms_15; SGroup 8446 14 syms_17]);
   (163687, 20, [AGroup 5 1 [sym_ppDirective]; AGroup 16131 1 [anon_sym_LBRACK];
     AGroup 16133 1 [anon_sym_LPAREN]; AGroup 16137 1 [anon_sym_POUND];
     AGroup 16151 1 [sym_kSpecialize]; AGroup 16155 1 [sym_kIf]; AGroup 16157 1 [sym_kInherited];
     AGroup 17420 1 [sym_kString]; AGroup 3 2 syms_5; AGroup 16135 2 syms_6;
     AGroup 16139 2 syms_7; AGroup 16141 2 syms_8; AGroup 16143 2 syms_9; AGroup 16145 2 syms_10;
     AGroup 16153 2 syms_11; SGroup 8630 2 syms_12; SGroup 7260 3 syms_13; SGroup 9442 4 syms_14;
     AGroup 16147 5 syms_15; SGroup 8446 14 syms_17]);
   (163778, 8, [AGroup 5 1 [sym_ppDirective]; AGroup 3 2 syms_5; SGroup 9368 2 syms_12;
     SGroup 7477 3 syms_13; SGroup 8665 4 syms_14; AGroup 18189 5 syms_150;
     SGroup 8680 14 syms_17; AGroup 18187 19 syms_151]);
   (163845, 20, [AGroup 5 1 [sym_ppDirective]; AGroup 16101 1 [anon_sym_LBRACK];
     AGroup 16103 1 [anon_sym_LPAREN]; AGroup 16107 1 [anon_sym_POUND];
     AGroup 16121 1 [sym_kSpecialize]; AGroup 16125 1 [sym_kIf]; AGroup 16127 1 [sym_kInherited];
     AGroup 17012 1 [sym_kString]; AGroup 3 2 syms_5; AGroup 16105 2 syms_6;
     AGroup 16109 2 syms_7; AGroup 16111 2 syms_8; AGroup 16113 2 syms_9; AGroup 16115 2 syms_10;
     AGroup 16123 2 syms_11; SGroup 8060 2 syms_12; SGroup 7068 3 syms_13; SGroup 7843 4 syms_14;
     AGroup 16117 5 syms_15; SGroup 7822 14 syms_17]);
   (163936, 20, [AGroup 5 1 [sym_ppDirective]; AGroup 15925 1 [anon_sym_LBRACK];
     AGroup 15927 1 [anon_sym_LPAREN]; AGroup 15931 1 [anon_sym_POUND];
     AGroup 15945 1 [sym_kSpecialize]; AGroup 15949 1 [sym_kIf]; AGroup 15951 1 [sym_kInherited];
     AGroup 17248 1 [sym_kString]; AGroup 3 2 syms_5; AGroup 15929 2 syms_6;
     AGroup 15933 2 syms_7; AGroup 15935 2 syms_8; AGroup 15937 2 syms_9; AGroup 15939 2 syms_10;
     AGroup 15947 2 syms_11; SGroup 9150 2 syms_12; SGroup 7490 3 syms_13; SGroup 9815 4 syms_14;
     AGroup 15941 5 syms_15; SGroup 8764 14 syms_17]);
   (164027, 20, [AGroup 5 1 [sym_ppDirective]; AGroup 399 1 [anon_sym_LBRACK];
     AGroup 401 1 [anon_sym_LPAREN]; AGroup 405 1 [anon_sym_POUND];
     AGroup 423 1 [sym_kSpecialize]; AGroup 445 1 [sym_kInherited]; AGroup 451 1 [sym_kString];
     AGroup 15601 1 [sym_kIf]; AGroup 3 2 syms_5; AGroup 403 2 syms_6; AGroup 407 2 syms_7;
     AGroup 409 2 syms_8; AGroup 413 2 syms_9; AGroup 415 2 syms_10; AGroup 439 2 syms_11;
     SGroup 7742 2 syms_12; SGroup 6664 3 syms_13; SGroup 7460 4 syms_14; AGroup 417 5 syms_15;
     SGroup 7478 14 syms_17]);
   (164118, 20, [AGroup 5 1 [sym_ppDirective]; AGroup 399 1 [anon_sym_LBRACK];
     AGroup 401 1 [anon_sym_LPAREN]; AGroup 405 1 [anon_sym_POUND];
     AGroup 423 1 [sym_kSpecialize]; AGroup 445 1 [sym_kInherited]; AGroup 451 1 [sym_kString];
     AGroup 15601 1 [sym_kIf]; AGroup 3 2 syms_5; AGroup 403 2 syms_6; AGroup 407 2 syms_7;
     AGroup 409 2 syms_8; AGroup 413 2 syms_9; AGroup 415 2 syms_10; AGroup 439 2 syms_11;
     SGroup 7742 2 syms_12; SGroup 6664 3 syms_13; SGroup 7461 4 syms_14; AGroup 417 5 syms_15;
     SGroup 7478 14 syms_17]);
   (164209, 10, [AGroup 11641 1 [sym_kDispId]; AGroup 11643 1 [sym_kPublic]; AGroup 11645 1 [sym_kMessage];
     AGroup 11647 1 [sym_kDeprecated]; AGroup 11649 1 [sym_kExport]; AGroup 11651 1 [sym_kAlias];
     SGroup 4477 1 [aux_sym__procAttributeNoExt_repeat2]; SGroup 13603 1 [sym_procAttribute];
     AGroup 3 3 syms_1; AGroup 1016 39 syms_33]);
   (164280, 20, [AGroup 5 1 [sym_ppDirective]; AGroup 399 1 [anon_sym_LBRACK];
     AGroup 401 1 [anon_sym_LPAREN]; AGroup 405 1 [anon_sym_POUND];
     AGroup 423 1 [sym_kSpecialize]; AGroup 445 1 [sym_kInherited]; AGroup 451 1 [sym_kString];
     AGroup 15601 1 [sym_kIf]; AGroup 3 2 syms_5; AGroup 403 2 syms_6; AGroup 407 2 syms_7;
     AGroup 409 2 syms_8; AGroup 413 2 syms_9; AGroup 415 2 syms_10; AGroup 439 2 syms_11;
     SGroup 7742 2 syms_12; SGroup 6664 3 syms_13; SGroup 7462 4 syms_14; AGroup 417 5 syms_15;
     SGroup 7478 14 syms_17]);
   (164371, 21, [AGroup 5 1 [sym_ppDirective]; AGroup 399 1 [anon_sym_LBRACK];
     AGroup 401 1 [anon_sym_LPAREN]; AGroup 405 1 [anon_sym_POUND]; AGroup 415 1 [sym_kAt];
     AGroup 423 1 [sym_kSpecialize]; AGroup 445 1 [sym_kInherited]; AGroup 451 1 [sym_kString];
     AGroup 15601 1 [sym_kIf]; AGroup 18268 1 [sym_kNot]; AGroup 3 2 syms_5; AGroup 403 2 syms_6;
     AGroup 407 2 syms_7; AGroup 409 2 syms_8; AGroup 413 2 syms_9; AGroup 439 2 syms_11;
     SGroup 7742 2 syms_12; SGroup 6664 3 syms_13; SGroup 7462 4 syms_14; AGroup 417 5 syms_15;
     SGroup 7478 14 syms_17]);
   (164464, 20, [AGroup 5 1 [sym_ppDirective]; AGroup 16101 1 [anon_sym_LBRACK];
     AGroup 16103 1 [anon_sym_LPAREN]; AGroup 16107 1 [anon_sym_POUND];
     AGroup 16121 1 [sym_kSpecialize]; AGroup 16125 1 [sym_kIf]; AGroup 16127 1 [sym_kInherited];
     AGroup 17012 1 [sym_kString]; AGroup 3 2 syms_5; AGroup 16105 2 syms_6;
     AGroup 16109 2 syms_7; AGroup 16111 2 syms_8; AGroup 16113 2 syms_9; AGroup 16115 2 syms_10;
     AGroup 16123 2 syms_11; SGroup 8060 2 syms_12; SGroup 7068 3 syms_13; SGroup 7845 4 syms_14;
     AGroup 16117 5 syms_15; SGroup 7822 14 syms_17]);
   (164555, 20, [AGroup 5 1 [sym_ppDirective]; AGroup 399 1 [anon_sym_LBRACK];
     AGroup 401 1 [anon_sym_LPAREN]; AGroup 405 1 [anon_sym_POUND];
     AGroup 423 1 [sym_kSpecialize]; AGroup 445 1 [sym_kInherited]; AGroup 451 1 [sym_kString];
     AGroup 15601 1 [sym_kIf]; AGroup 3 2 syms_5; AGroup 403 2 syms_6; AGroup 407 2 syms_7;
     AGroup 409 2 syms_8; AGroup 413 2 syms_9; AGroup 415 2 syms_10; AGroup 439 2 syms_11;
     SGroup 7742 2 syms_12; SGroup 6664 3 syms_13; SGroup 7559 4 syms_14; AGroup 417 5 syms_15;
     SGroup 7478 14 syms_17]);
   (164646, 20, [AGroup 5 1 [sym_ppDirective]; AGroup 15831 1 [anon_sym_LBRACK];
     AGroup 15833 1 [anon_sym_LPAREN]; AGroup 15837 1 [anon_sym_POUND];
     AGroup 15851 1 [sym_kSpecialize]; AGroup 15855 1 [sym_kIf]; AGroup 15857 1 [sym_kInherited];
     AGroup 17312 1 [sym_kString]; AGroup 3 2 syms_5; AGroup 15835 2 syms_6;
     AGroup 15839 2 syms_7; AGroup 15841 2 syms_8; AGroup 15843 2 syms_9; AGroup 15845 2 syms_10;
     AGroup 15853 2 syms_11; SGroup 9267 2 syms_12; SGroup 7556 3 syms_13; SGroup 9801 4 syms_14;
     AGroup 15847 5 syms_15; SGroup 8649 14 syms_17]);
   (164737, 20, [AGroup 5 1 [sym_ppDirective]; AGroup 16101 1 [anon_sym_LBRACK];
     AGroup 16103 1 [anon_sym_LPAREN]; AGroup 16107 1 [anon_sym_POUND];
     AGroup 16121 1 [sym_kSpecialize]; AGroup 16125 1 [sym_kIf]; AGroup 16127 1 [sym_kInherited];
     AGroup 17012 1 [sym_kString]; AGroup 3 2 syms_5; AGroup 16105 2 syms_6;
     AGroup 16109 2 syms_7; AGroup 16111 2 syms_8; AGroup 16113 2 syms_9; AGroup 16115 2 syms_10;
     AGroup 16123 2 syms_11; SGroup 8060 2 syms_12; SGroup 7068 3 syms_13; SGroup 7848 4 syms_14;
     AGroup 16117 5 syms_15; SGroup 7822 14 syms_17]);
   (164828, 20, [AGroup 5 1 [sym_ppDirective]; AGroup 16673 1 [anon_sym_LBRACK];
     AGroup 16675 1 [anon_sym_LPAREN]; AGroup 16679 1 [anon_sym_POUND];
     AGroup 16693 1 [sym_kSpecialize]; AGroup 16697 1 [sym_kIf]; AGroup 16699 1 [sym_kInherited];
     AGroup 17272 1 [sym_kString]; AGroup 3 2 syms_5; AGroup 16677 2 syms_6;
     AGroup 16681 2 syms_7; AGroup 16683 2 syms_8; AGroup 16685 2 syms_9; AGroup 16687 2 syms_10;
     AGroup 16695 2 syms_11; SGroup 7694 2 syms_12; SGroup 6650 3 syms_13; SGroup 8038 4 syms_14;
     AGroup 16689 5 syms_15; SGroup 7401 14 syms_17]);
   (164919, 20, [AGroup 5 1 [sym_ppDirective]; AGroup 15831 1 [anon_sym_LBRACK];
     AGroup 15833 1 [anon_sym_LPAREN]; AGroup 15837 1 [anon_sym_POUND];
     AGroup 15851 1 [sym_kSpecialize]; AGroup 15855 1 [sym_kIf]; AGroup 15857 1 [sym_kInherited];
     AGroup 17312 1 [sym_kString]; AGroup 3 2 syms_5; AGroup 15835 2 syms_6;
     AGroup 15839 2 syms_7; AGroup 15841 2 syms_8; AGroup 15843 2 syms_9; AGroup 15845 2 syms_10;
     AGroup 15853 2 syms_11; SGroup 9267 2 syms_12; SGroup 7556 3 syms_13; SGroup 9705 4 syms_14;
     AGroup 15847 5 syms_15; SGroup 8649 14 syms_17]);
   (165010, 20, [AGroup 5 1 [sym_ppDirective]; AGroup 15831 1 [anon_sym_LBRACK];
     AGroup 15833 1 [anon_sym_LPAREN]; AGroup 15837 1 [anon_sym_POUND];
     AGroup 15851 1 [sym_kSpecialize]; AGroup 15855 1 [sym_kIf]; AGroup 15857 1 [sym_kInherited];
     AGroup 17312 1 [sym_kString]; AGroup 3 2 syms_5; AGroup 15835 2 syms_6;
     AGroup 15839 2 syms_7; AGroup 15841 2 syms_8; AGroup 15843 2 syms_9; AGroup 15845 2 syms_10;
     AGroup 15853 2 syms_11; SGroup 9267 2 syms_12; SGroup 7556 3 syms_13; SGroup 9707 4 syms_14;
     AGroup 15847 5 syms_15; SGroup 8649 14 syms_17]);
   (165101, 4, [AGroup 5 1 [sym_ppDirective]; AGroup 3 2 syms_5; AGroup 15295 4 syms_25;
     AGroup 15293 43 syms_156]);
   (165160, 20, [AGroup 5 1 [sym_ppDirective]; AGroup 16277 1 [anon_sym_LBRACK];
     AGroup 16279 1 [anon_sym_LPAREN]; AGroup 16283 1 [anon_sym_POUND];
     AGroup 16297 1 [sym_kSpecialize]; AGroup 16301 1 [sym_kIf]; AGroup 16303 1 [sym_kInherited];
     AGroup 17198 1 [sym_kString]; AGroup 3 2 syms_5; AGroup 16281 2 syms_6;
     AGroup 16285 2 syms_7; AGroup 16287 2 syms_8; AGroup 16289 2 syms_9; AGroup 16291 2 syms_10;
     AGroup 16299 2 syms_11; SGroup 8374 2 syms_12; SGroup 7217 3 syms_13; SGroup 8059 4 syms_14;
     AGroup 16293 5 syms_15; SGroup 8074 14 syms_17]);
   (165251, 8, [AGroup 5 1 [sym_ppDirective]; AGroup 3 2 syms_5; SGroup 8200 2 syms_12;
     SGroup 7203 3 syms_13; SGroup 8022 4 syms_14; AGroup 18189 5 syms_150;
     SGroup 8033 14 syms_17; AGroup 18187 19 syms_151]);
   (165318, 5, [AGroup 5 1 [sym_ppDirective]; AGroup 3 2 syms_5; AGroup 15473 4 syms_25;
     AGroup 15403 18 syms_36; AGroup 15471 25 syms_157]);
   (165379, 4, [AGroup 5 1 [sym_ppDirective]; AGroup 3 2 syms_5; AGroup 15355 4 syms_25;
     AGroup 15353 43 syms_156]);
   (165438, 20, [AGroup 5 1 [sym_ppDirective]; AGroup 16277 1 [anon_sym_LBRACK];
     AGroup 16279 1 [anon_sym_LPAREN]; AGroup 16283 1 [anon_sym_POUND];
     AGroup 16297 1 [sym_kSpecialize]; AGroup 16301 1 [sym_kIf]; AGroup 16303 1 [sym_kInherited];
     AGroup 17198 1 [sym_kString]; AGroup 3 2 syms_5; AGroup 16281 2 syms_6;
     AGroup 16285 2 syms_7; AGroup 16287 2 syms_8; AGroup 16289 2 syms_9; AGroup 16291 2 syms_10;
     AGroup 16299 2 syms_11; SGroup 8374 2 syms_12; SGroup 7217 3 syms_13; SGroup 8078 4 syms_14;
     AGroup 16293 5 syms_15; SGroup 8074 14 syms_17]);
   (165529, 20, [AGroup 5 1 [sym_ppDirective]; AGroup 16277 1 [anon_sym_LBRACK];
     AGroup 16279 1 [anon_sym_LPAREN]; AGroup 16283 1 [anon_sym_POUND];
     AGroup 16297 1 [sym_kSpecialize]; AGroup 16301 1 [sym_kIf]; AGroup 16303 1 [sym_kInherited];
     AGroup 17198 1 [sym_kString]; AGroup 3 2 syms_5; AGroup 16281 2 syms_6;
     AGroup 16285 2 syms_7; AGroup 16287 2 syms_8; AGroup 16289 2 syms_9; AGroup 16291 2 syms_10;
     AGroup 16299 2 syms_11; SGroup 8374 2 syms_12; SGroup 7217 3 syms_13; SGroup 8079 4 syms_14;
     AGroup 16293 5 syms_15; SGroup 8074 14 syms_17]);
   (165620, 20, [AGroup 5 1 [sym_ppDirective]; AGroup 16277 1 [anon_sym_LBRACK];
     AGroup 16279 1 [anon_sym_LPAREN]; AGroup 16283 1 [anon_sym_POUND];
     AGroup 16297 1 [sym_kSpecialize]; AGroup 16301 1 [sym_kIf]; AGroup 16303 1 [sym_kInherited];
     AGroup 17198 1 [sym_kString]; AGroup 3 2 syms_5; AGroup 16281 2 syms_6;
     AGroup 16285 2 syms_7; AGroup 16287 2 syms_8; AGroup 16289 2 syms_9; AGroup 16291 2 syms_10;
     AGroup 16299 2 syms_11; SGroup 8374 2 syms_12; SGroup 7217 3 syms_13; SGroup 8080 4 syms_14;
     AGroup 16293 5 syms_15; SGroup 8074 14 syms_17]);
   (165711, 21, [AGroup 5 1 [sym_ppDirective]; AGroup 16277 1 [anon_sym_LBRACK];
     AGroup 16279 1 [anon_sym_LPAREN]; AGroup 16283 1 [anon_sym_POUND]; AGroup 16291 1 [sym_kAt];
     AGroup 16297 1 [sym_kSpecialize]; AGroup 16301 1 [sym_kIf]; AGroup 16303 1 [sym_kInherited];
     AGroup 17198 1 [sym_kString]; AGroup 18270 1 [sym_kNot]; AGroup 3 2 syms_5;
     AGroup 16281 2 syms_6; AGroup 16285 2 syms_7; AGroup 16287 2 syms_8; AGroup 16289 2 syms_9;
     AGroup 16299 2 syms_11; SGroup 8374 2 syms_12; SGroup 7217 3 syms_13; SGroup 8080 4 syms_14;
     AGroup 16293 5 syms_15; SGroup 8074 14 syms_17]);
   (165804, 20, [AGroup 5 1 [sym_ppDirective]; AGroup 16277 1 [anon_sym_LBRACK];
     AGroup 16279 1 [anon_sym_LPAREN]; AGroup 16283 1 [anon_sym_POUND];
     AGroup 16297 1 [sym_kSpecialize]; AGroup 16301 1 [sym_kIf]; AGroup 16303 1 [sym_kInherited];
     AGroup 17198 1 [sym_kString]; AGroup 3 2 syms_5; AGroup 16281 2 syms_6;
     AGroup 16285 2 syms_7; AGroup 16287 2 syms_8; AGroup 16289 2 syms_9; AGroup 16291 2 syms_10;
     AGroup 16299 2 syms_11; SGroup 8374 2 syms_12; SGroup 7217 3 syms_13; SGroup 8081 4 syms_14;
     AGroup 16293 5 syms_15; SGroup 8074 14 syms_17]);
   (165895, 20, [AGroup 5 1 [sym_ppDirective]; AGroup 15647 1 [anon_sym_LBRACK];
     AGroup 15653 1 [anon_sym_POUND]; AGroup 15667 1 [sym_kSpecialize];
     AGroup 15673 1 [sym_kInherited]; AGroup 15675 1 [sym_kString];
     AGroup 15745 1 [anon_sym_LPAREN]; AGroup 15755 1 [sym_kIf]; AGroup 3 2 syms_5;
     AGroup 15651 2 syms_6; AGroup 15655 2 syms_7; AGroup 15657 2 syms_8; AGroup 15669 2 syms_11;
     AGroup 15747 2 syms_9; AGroup 15749 2 syms_10; SGroup 8129 2 syms_12; SGroup 7100 3 syms_13;
     SGroup 10220 4 syms_14; AGroup 15751 5 syms_15; SGroup 8464 14 syms_17]);
   (165986, 20, [AGroup 5 1 [sym_ppDirective]; AGroup 16131 1 [anon_sym_LBRACK];
     AGroup 16133 1 [anon_sym_LPAREN]; AGroup 16137 1 [anon_sym_POUND];
     AGroup 16151 1 [sym_kSpecialize]; AGroup 16155 1 [sym_kIf]; AGroup 16157 1 [sym_kInherited];
     AGroup 17420 1 [sym_kString]; AGroup 3 2 syms_5; AGroup 16135 2 syms_6;
     AGroup 16139 2 syms_7; AGroup 16141 2 syms_8; AGroup 16143 2 syms_9; AGroup 16145 2 syms_10;
     AGroup 16153 2 syms_11; SGroup 8630 2 syms_12; SGroup 7260 3 syms_13; SGroup 9386 4 syms_14;
     AGroup 16147 5 syms_15; SGroup 8446 14 syms_17]);
   (166077, 20, [AGroup 5 1 [sym_ppDirective]; AGroup 15755 1 [sym_kIf]; AGroup 16277 1 [anon_sym_LBRACK];
     AGroup 16279 1 [anon_sym_LPAREN]; AGroup 16283 1 [anon_sym_POUND];
     AGroup 16297 1 [sym_kSpecialize]; AGroup 16303 1 [sym_kInherited];
     AGroup 17198 1 [sym_kString]; AGroup 3 2 syms_5; AGroup 15747 2 syms_9;
     AGroup 15749 2 syms_10; AGroup 16281 2 syms_6; AGroup 16285 2 syms_7; AGroup 16287 2 syms_8;
     AGroup 16299 2 syms_11; SGroup 8374 2 syms_12; SGroup 7217 3 syms_13;
     SGroup 10314 4 syms_14; AGroup 18272 5 syms_15; SGroup 8082 14 syms_17]);
   (166168, 5, [AGroup 5 1 [sym_ppDirective]; AGroup 3 2 syms_5; AGroup 15504 4 syms_25;
     AGroup 15403 18 syms_36; AGroup 15502 25 syms_157]);
   (166229, 20, [AGroup 5 1 [sym_ppDirective]; AGroup 16131 1 [anon_sym_LBRACK];
     AGroup 16133 1 [anon_sym_LPAREN]; AGroup 16137 1 [anon_sym_POUND];
     AGroup 16151 1 [sym_kSpecialize]; AGroup 16155 1 [sym_kIf]; AGroup 16157 1 [sym_kInherited];
     AGroup 17420 1 [sym_kString]; AGroup 3 2 syms_5; AGroup 16135 2 syms_6;
     AGroup 16139 2 syms_7; AGroup 16141 2 syms_8; AGroup 16143 2 syms_9; AGroup 16145 2 syms_10;
     AGroup 16153 2 syms_11; SGroup 8630 2 syms_12; SGroup 7260 3 syms_13; SGroup 9419 4 syms_14;
     AGroup 16147 5 syms_15; SGroup 8446 14 syms_17]);
   (166320, 20, [AGroup 5 1 [sym_ppDirective]; AGroup 16131 1 [anon_sym_LBRACK];
     AGroup 16133 1 [anon_sym_LPAREN]; AGroup 16137 1 [anon_sym_POUND];
     AGroup 16151 1 [sym_kSpecialize]; AGroup 16155 1 [sym_kIf]; AGroup 16157 1 [sym_kInherited];
     AGroup 17420 1 [sym_kString]; AGroup 3 2 syms_5; AGroup 16135 2 syms_6;
     AGroup 16139 2 syms_7; AGroup 16141 2 syms_8; AGroup 16143 2 syms_9; AGroup 16145 2 syms_10;
     AGroup 16153 2 syms_11; SGroup 8630 2 syms_12; SGroup 7260 3 syms_13; SGroup 9423 4 syms_14;
     AGroup 16147 5 syms_15; SGroup 8446 14 syms_17]);
   (166411, 5, [AGroup 5 1 [sym_ppDirective]; AGroup 3 2 syms_5; AGroup 15484 4 syms_25;
     AGroup 15403 18 syms_36; AGroup 15482 25 syms_157]);
   (166472, 8, [AGroup 5 1 [sym_ppDirective]; AGroup 3 2 syms_5; SGroup 8765 2 syms_12;
     SGroup 7328 3 syms_13; SGroup 8205 4 syms_14; AGroup 18189 5 syms_150;
     SGroup 8252 14 syms_17; AGroup 18187 19 syms_151]);
   (166539, 20, [AGroup 5 1 [sym_ppDirective]; AGroup 16277 1 [anon_sym_LBRACK];
     AGroup 16279 1 [anon_sym_LPAREN]; AGroup 16283 1 [anon_sym_POUND];
     AGroup 16297 1 [sym_kSpecialize]; AGroup 16301 1 [sym_kIf]; AGroup 16303 1 [sym_kInherited];
     AGroup 17198 1 [sym_kString]; AGroup 3 2 syms_5; AGroup 16281 2 syms_6;
     AGroup 16285 2 syms_7; AGroup 16287 2 syms_8; AGroup 16289 2 syms_9; AGroup 16291 2 syms_10;
     AGroup 16299 2 syms_11; SGroup 8374 2 syms_12; SGroup 7217 3 syms_13; SGroup 8083 4 syms_14;
     AGroup 16293 5 syms_15; SGroup 8074 14 syms_17]);
   (166630, 5, [AGroup 5 1 [sym_ppDirective]; AGroup 3 2 syms_5; AGroup 15492 4 syms_25;
     AGroup 15403 18 syms_36; AGroup 15490 25 syms_157]);
   (166691, 5, [AGroup 5 1 [sym_ppDirective]; AGroup 3 2 syms_5; AGroup 15401 4 syms_25;
     AGroup 15403 18 syms_36; AGroup 15399 25 syms_157]);
   (166752, 20, [AGroup 5 1 [sym_ppDirective]; AGroup 16673 1 [anon_sym_LBRACK];
     AGroup 16675 1 [anon_sym_LPAREN]; AGroup 16679 1 [anon_sym_POUND];
     AGroup 16693 1 [sym_kSpecialize]; AGroup 16697 1 [sym_kIf]; AGroup 16699 1 [sym_kInherited];
     AGroup 17272 1 [sym_kString]; AGroup 3 2 syms_5; AGroup 16677 2 syms_6;
     AGroup 16681 2 syms_7; AGroup 16683 2 syms_8; AGroup 16685 2 syms_9; AGroup 16687 2 syms_10;
     AGroup 16695 2 syms_11; SGroup 7694 2 syms_12; SGroup 6650 3 syms_13; SGroup 8062 4 syms_14;
     AGroup 16689 5 syms_15; SGroup 7401 14 syms_17]);
   (166843, 20, [AGroup 5 1 [sym_ppDirective]; AGroup 399 1 [anon_sym_LBRACK];
     AGroup 401 1 [anon_sym_LPAREN]; AGroup 405 1 [anon_sym_POUND];
     AGroup 423 1 [sym_kSpecialize]; AGroup 445 1 [sym_kInherited]; AGroup 451 1 [sym_kString];
     AGroup 15755 1 [sym_kIf]; AGroup 3 2 syms_5; AGroup 403 2 syms_6; AGroup 407 2 syms_7;
     AGroup 409 2 syms_8; AGroup 439 2 syms_11; AGroup 15747 2 syms_9; AGroup 15749 2 syms_10;
     SGroup 7742 2 syms_12; SGroup 6664 3 syms_13; SGroup 10248 4 syms_14;
     AGroup 18274 5 syms_15; SGroup 7472 14 syms_17]);
   (166934, 20, [AGroup 5 1 [sym_ppDirective]; AGroup 16673 1 [anon_sym_LBRACK];
     AGroup 16675 1 [anon_sym_LPAREN]; AGroup 16679 1 [anon_sym_POUND];
     AGroup 16693 1 [sym_kSpecialize]; AGroup 16697 1 [sym_kIf]; AGroup 16699 1 [sym_kInherited];
     AGroup 17272 1 [sym_kString]; AGroup 3 2 syms_5; AGroup 16677 2 syms_6;
     AGroup 16681 2 syms_7; AGroup 16683 2 syms_8; AGroup 16685 2 syms_9; AGroup 16687 2 syms_10;
     AGroup 16695 2 syms_11; SGroup 7694 2 syms_12; SGroup 6650 3 syms_13; SGroup 8064 4 syms_14;
     AGroup 16689 5 syms_15; SGroup 7401 14 syms_17]);
   (167025, 20, [AGroup 5 1 [sym_ppDirective]; AGroup 16673 1 [anon_sym_LBRACK];
     AGroup 16675 1 [anon_sym_LPAREN]; AGroup 16679 1 [anon_sym_POUND];
     AGroup 16693 1 [sym_kSpecialize]; AGroup 16697 1 [sym_kIf]; AGroup 16699 1 [sym_kInherited];
     AGroup 17272 1 [sym_kString]; AGroup 3 2 syms_5; AGroup 16677 2 syms_6;
     AGroup 16681 2 syms_7; AGroup 16683 2 syms_8; AGroup 16685 2 syms_9; AGroup 16687 2 syms_10;
     AGroup 16695 2 syms_11; SGroup 7694 2 syms_12; SGroup 6650 3 syms_13; SGroup 8065 4 syms_14;
     AGroup 16689 5 syms_15; SGroup 7401 14 syms_17]);
   (167116, 21, [AGroup 5 1 [sym_ppDirective]; AGroup 16101 1 [anon_sym_LBRACK];
     AGroup 16103 1 [anon_sym_LPAREN]; AGroup 16107 1 [anon_sym_POUND]; AGroup 16115 1 [sym_kAt];
     AGroup 16121 1 [sym_kSpecialize]; AGroup 16125 1 [sym_kIf]; AGroup 16127 1 [sym_kInherited];
     AGroup 17012 1 [sym_kString]; AGroup 18276 1 [sym_kNot]; AGroup 3 2 syms_5;
     AGroup 16105 2 syms_6; AGroup 16109 2 syms_7; AGroup 16111 2 syms_8; AGroup 16113 2 syms_9;
     AGroup 16123 2 syms_11; SGroup 8060 2 syms_12; SGroup 7068 3 syms_13; SGroup 7848 4 syms_14;
     AGroup 16117 5 syms_15; SGroup 7822 14 syms_17]);
   (167209, 8, [AGroup 5 1 [sym_ppDirective]; AGroup 3 2 syms_5; SGroup 9150 2 syms_12;
     SGroup 7490 3 syms_13; SGroup 8719 4 syms_14; AGroup 18189 5 syms_150;
     SGroup 8764 14 syms_17; AGroup 18187 19 syms_151]);
   (167276, 20, [AGroup 5 1 [sym_ppDirective]; AGroup 399 1 [anon_sym_LBRACK];
     AGroup 401 1 [anon_sym_LPAREN]; AGroup 405 1 [anon_sym_POUND];
     AGroup 423 1 [sym_kSpecialize]; AGroup 445 1 [sym_kInherited]; AGroup 451 1 [sym_kString];
     AGroup 15601 1 [sym_kIf]; AGroup 3 2 syms_5; AGroup 403 2 syms_6; AGroup 407 2 syms_7;
     AGroup 409 2 syms_8; AGroup 413 2 syms_9; AGroup 415 2 syms_10; AGroup 439 2 syms_11;
     SGroup 7742 2 syms_12; SGroup 6664 3 syms_13; SGroup 7476 4 syms_14; AGroup 417 5 syms_15;
     SGroup 7478 14 syms_17]);
   (167367, 5, [AGroup 5 1 [sym_ppDirective]; AGroup 3 2 syms_5; AGroup 15439 4 syms_25;
     AGroup 15403 18 syms_36; AGroup 15437 25 syms_157])
  ].

(** States 4559 to 4658. *)
Definition small_runs_4559 : list small_run :=
  [
   (167428, 5, [AGroup 5 1 [sym_ppDirective]; AGroup 3 2 syms_5; AGroup 15488 4 syms_25;
     AGroup 15403 18 syms_36; AGroup 15486 25 syms_157]);
   (167489, 20, [AGroup 5 1 [sym_ppDirective]; AGroup 16277 1 [anon_sym_LBRACK];
     AGroup 16279 1 [anon_sym_LPAREN]; AGroup 16283 1 [anon_sym_POUND];
     AGroup 16297 1 [sym_kSpecialize]; AGroup 16301 1 [sym_kIf]; AGroup 16303 1 [sym_kInherited];
     AGroup 17198 1 [sym_kString]; AGroup 3 2 syms_5; AGroup 16281 2 syms_6;
     AGroup 16285 2 syms_7; AGroup 16287 2 syms_8; AGroup 16289 2 syms_9; AGroup 16291 2 syms_10;
     AGroup 16299 2 syms_11; SGroup 8374 2 syms_12; SGroup 7217 3 syms_13; SGroup 8086 4 syms_14;
     AGroup 16293 5 syms_15; SGroup 8074 14 syms_17]);
   (167580, 20, [AGroup 5 1 [sym_ppDirective]; AGroup 15831 1 [anon_sym_LBRACK];
     AGroup 15833 1 [anon_sym_LPAREN]; AGroup 15837 1 [anon_sym_POUND];
     AGroup 15851 1 [sym_kSpecialize]; AGroup 15855 1 [sym_kIf]; AGroup 15857 1 [sym_kInherited];
     AGroup 17312 1 [sym_kString]; AGroup 3 2 syms_5; AGroup 15835 2 syms_6;
     AGroup 15839 2 syms_7; AGroup 15841 2 syms_8; AGroup 15843 2 syms_9; AGroup 15845 2 syms_10;
     AGroup 15853 2 syms_11; SGroup 9267 2 syms_12; SGroup 7556 3 syms_13; SGroup 9737 4 syms_14;
     AGroup 15847 5 syms_15; SGroup 8649 14 syms_17]);
   (167671, 20, [AGroup 5 1 [sym_ppDirective]; AGroup 15761 1 [anon_sym_LBRACK];
     AGroup 15763 1 [anon_sym_LPAREN]; AGroup 15767 1 [anon_sym_POUND];
     AGroup 15781 1 [sym_kSpecialize]; AGroup 15787 1 [sym_kInherited]; AGroup 16229 1 [sym_kIf];
     AGroup 17864 1 [sym_kString]; AGroup 3 2 syms_5; AGroup 15765 2 syms_6;
     AGroup 15769 2 syms_7; AGroup 15771 2 syms_8; AGroup 15783 2 syms_11; AGroup 16221 2 syms_9;
     AGroup 16223 2 syms_10; SGroup 9180 2 syms_12; SGroup 7467 3 syms_13;
     SGroup 10027 4 syms_14; AGroup 16225 5 syms_15; SGroup 9076 14 syms_17]);
   (167762, 20, [AGroup 5 1 [sym_ppDirective]; AGroup 15831 1 [anon_sym_LBRACK];
     AGroup 15833 1 [anon_sym_LPAREN]; AGroup 15837 1 [anon_sym_POUND];
     AGroup 15851 1 [sym_kSpecialize]; AGroup 15855 1 [sym_kIf]; AGroup 15857 1 [sym_kInherited];
     AGroup 17312 1 [sym_kString]; AGroup 3 2 syms_5; AGroup 15835 2 syms_6;
     AGroup 15839 2 syms_7; AGroup 15841 2 syms_8; AGroup 15843 2 syms_9; AGroup 15845 2 syms_10;
     AGroup 15853 2 syms_11; SGroup 9267 2 syms_12; SGroup 7556 3 syms_13; SGroup 9785 4 syms_14;
     AGroup 15847 5 syms_15; SGroup 8649 14 syms_17]);
   (167853, 20, [AGroup 5 1 [sym_ppDirective]; AGroup 15831 1 [anon_sym_LBRACK];
     AGroup 15833 1 [anon_sym_LPAREN]; AGroup 15837 1 [anon_sym_POUND];
     AGroup 15851 1 [sym_kSpecialize]; AGroup 15855 1 [sym_kIf]; AGroup 15857 1 [sym_kInherited];
     AGroup 17312 1 [sym_kString]; AGroup 3 2 syms_5; AGroup 15835 2 syms_6;
     AGroup 15839 2 syms_7; AGroup 15841 2 syms_8; AGroup 15843 2 syms_9; AGroup 15845 2 syms_10;
     AGroup 15853 2 syms_11; SGroup 9267 2 syms_12; SGroup 7556 3 syms_13; SGroup 9795 4 syms_14;
     AGroup 15847 5 syms_15; SGroup 8649 14 syms_17]);
   (167944, 20, [AGroup 5 1 [sym_ppDirective]; AGroup 16101 1 [anon_sym_LBRACK];
     AGroup 16103 1 [anon_sym_LPAREN]; AGroup 16107 1 [anon_sym_POUND];
     AGroup 16121 1 [sym_kSpecialize]; AGroup 16125 1 [sym_kIf]; AGroup 16127 1 [sym_kInherited];
     AGroup 17012 1 [sym_kString]; AGroup 3 2 syms_5; AGroup 16105 2 syms_6;
     AGroup 16109 2 syms_7; AGroup 16111 2 syms_8; AGroup 16113 2 syms_9; AGroup 16115 2 syms_10;
     AGroup 16123 2 syms_11; SGroup 8060 2 syms_12; SGroup 7068 3 syms_13; SGroup 7851 4 syms_14;
     AGroup 16117 5 syms_15; SGroup 7822 14 syms_17]);
   (168035, 8, [AGroup 5 1 [sym_ppDirective]; AGroup 3 2 syms_5; SGroup 8129 2 syms_12;
     SGroup 7100 3 syms_13; SGroup 8941 4 syms_14; AGroup 18189 5 syms_150;
     SGroup 7786 14 syms_17; AGroup 18187 19 syms_151]);
   (168102, 5, [AGroup 5 1 [sym_ppDirective]; AGroup 3 2 syms_5; AGroup 15496 4 syms_25;
     AGroup 15403 18 syms_36; AGroup 15494 25 syms_157]);
   (168163, 20, [AGroup 5 1 [sym_ppDirective]; AGroup 16435 1 [anon_sym_LBRACK];
     AGroup 16437 1 [anon_sym_LPAREN]; AGroup 16441 1 [anon_sym_POUND];
     AGroup 16455 1 [sym_kSpecialize]; AGroup 16459 1 [sym_kIf]; AGroup 16461 1 [sym_kInherited];
     AGroup 17540 1 [sym_kString]; AGroup 3 2 syms_5; AGroup 16439 2 syms_6;
     AGroup 16443 2 syms_7; AGroup 16445 2 syms_8; AGroup 16447 2 syms_9; AGroup 16449 2 syms_10;
     AGroup 16457 2 syms_11; SGroup 8859 2 syms_12; SGroup 7280 3 syms_13; SGroup 9408 4 syms_14;
     AGroup 16451 5 syms_15; SGroup 8207 14 syms_17]);
   (168254, 20, [AGroup 5 1 [sym_ppDirective]; AGroup 16307 1 [anon_sym_LBRACK];
     AGroup 16309 1 [anon_sym_LPAREN]; AGroup 16313 1 [anon_sym_POUND];
     AGroup 16327 1 [sym_kSpecialize]; AGroup 16331 1 [sym_kIf]; AGroup 16333 1 [sym_kInherited];
     AGroup 18278 1 [sym_kString]; AGroup 3 2 syms_5; AGroup 16311 2 syms_6;
     AGroup 16315 2 syms_7; AGroup 16317 2 syms_8; AGroup 16319 2 syms_9; AGroup 16321 2 syms_10;
     AGroup 16329 2 syms_11; SGroup 8420 2 syms_12; SGroup 7219 3 syms_13; SGroup 8075 4 syms_14;
     AGroup 16323 5 syms_15; SGroup 8095 14 syms_17]);
   (168345, 20, [AGroup 5 1 [sym_ppDirective]; AGroup 16435 1 [anon_sym_LBRACK];
     AGroup 16437 1 [anon_sym_LPAREN]; AGroup 16441 1 [anon_sym_POUND];
     AGroup 16455 1 [sym_kSpecialize]; AGroup 16459 1 [sym_kIf]; AGroup 16461 1 [sym_kInherited];
     AGroup 17540 1 [sym_kString]; AGroup 3 2 syms_5; AGroup 16439 2 syms_6;
     AGroup 16443 2 syms_7; AGroup 16445 2 syms_8; AGroup 16447 2 syms_9; AGroup 16449 2 syms_10;
     AGroup 16457 2 syms_11; SGroup 8859 2 syms_12; SGroup 7280 3 syms_13; SGroup 9420 4 syms_14;
     AGroup 16451 5 syms_15; SGroup 8207 14 syms_17]);
   (168436, 20, [AGroup 5 1 [sym_ppDirective]; AGroup 16435 1 [anon_sym_LBRACK];
     AGroup 16437 1 [anon_sym_LPAREN]; AGroup 16441 1 [anon_sym_POUND];
     AGroup 16455 1 [sym_kSpecialize]; AGroup 16459 1 [sym_kIf]; AGroup 16461 1 [sym_kInherited];
     AGroup 17540 1 [sym_kString]; AGroup 3 2 syms_5; AGroup 16439 2 syms_6;
     AGroup 16443 2 syms_7; AGroup 16445 2 syms_8; AGroup 16447 2 syms_9; AGroup 16449 2 syms_10;
     AGroup 16457 2 syms_11; SGroup 8859 2 syms_12; SGroup 7280 3 syms_13; SGroup 9421 4 syms_14;
     AGroup 16451 5 syms_15; SGroup 8207 14 syms_17]);
   (168527, 5, [AGroup 5 1 [sym_ppDirective]; AGroup 3 2 syms_5; AGroup 15473 4 syms_25;
     AGroup 15403 18 syms_36; AGroup 15471 25 syms_158]);
   (168588, 8, [AGroup 5 1 [sym_ppDirective]; AGroup 3 2 syms_5; SGroup 8374 2 syms_12;
     SGroup 7217 3 syms_13; SGroup 8059 4 syms_14; AGroup 18189 5 syms_150;
     SGroup 8074 14 syms_17; AGroup 18187 19 syms_151]);
   (168655, 20, [AGroup 5 1 [sym_ppDirective]; AGroup 16307 1 [anon_sym_LBRACK];
     AGroup 16309 1 [anon_sym_LPAREN]; AGroup 16313 1 [anon_sym_POUND];
     AGroup 16327 1 [sym_kSpecialize]; AGroup 16331 1 [sym_kIf]; AGroup 16333 1 [sym_kInherited];
     AGroup 18278 1 [sym_kString]; AGroup 3 2 syms_5; AGroup 16311 2 syms_6;
     AGroup 16315 2 syms_7; AGroup 16317 2 syms_8; AGroup 16319 2 syms_9; AGroup 16321 2 syms_10;
     AGroup 16329 2 syms_11; SGroup 8420 2 syms_12; SGroup 7219 3 syms_13; SGroup 8098 4 syms_14;
     AGroup 16323 5 syms_15; SGroup 8095 14 syms_17]);
   (168746, 20, [AGroup 5 1 [sym_ppDirective]; AGroup 16307 1 [anon_sym_LBRACK];
     AGroup 16309 1 [anon_sym_LPAREN]; AGroup 16313 1 [anon_sym_POUND];
     AGroup 16327 1 [sym_kSpecialize]; AGroup 16331 1 [sym_kIf]; AGroup 16333 1 [sym_kInherited];
     AGroup 18278 1 [sym_kString]; AGroup 3 2 syms_5; AGroup 16311 2 syms_6;
     AGroup 16315 2 syms_7; AGroup 16317 2 syms_8; AGroup 16319 2 syms_9; AGroup 16321 2 syms_10;
     AGroup 16329 2 syms_11; SGroup 8420 2 syms_12; SGroup 7219 3 syms_13; SGroup 8099 4 syms_14;
     AGroup 16323 5 syms_15; SGroup 8095 14 syms_17]);
   (168837, 20, [AGroup 5 1 [sym_ppDirective]; AGroup 16307 1 [anon_sym_LBRACK];
     AGroup 16309 1 [anon_sym_LPAREN]; AGroup 16313 1 [anon_sym_POUND];
     AGroup 16327 1 [sym_kSpecialize]; AGroup 16331 1 [sym_kIf]; AGroup 16333 1 [sym_kInherited];
     AGroup 18278 1 [sym_kString]; AGroup 3 2 syms_5; AGroup 16311 2 syms_6;
     AGroup 16315 2 syms_7; AGroup 16317 2 syms_8; AGroup 16319 2 syms_9; AGroup 16321 2 syms_10;
     AGroup 16329 2 syms_11; SGroup 8420 2 syms_12; SGroup 7219 3 syms_13; SGroup 8100 4 syms_14;
     AGroup 16323 5 syms_15; SGroup 8095 14 syms_17]);
   (168928, 21, [AGroup 5 1 [sym_ppDirective]; AGroup 16307 1 [anon_sym_LBRACK];
     AGroup 16309 1 [anon_sym_LPAREN]; AGroup 16313 1 [anon_sym_POUND]; AGroup 16321 1 [sym_kAt];
     AGroup 16327 1 [sym_kSpecialize]; AGroup 16331 1 [sym_kIf]; AGroup 16333 1 [sym_kInherited];
     AGroup 18278 1 [sym_kString]; AGroup 18280 1 [sym_kNot]; AGroup 3 2 syms_5;
     AGroup 16311 2 syms_6; AGroup 16315 2 syms_7; AGroup 16317 2 syms_8; AGroup 16319 2 syms_9;
     AGroup 16329 2 syms_11; SGroup 8420 2 syms_12; SGroup 7219 3 syms_13; SGroup 8100 4 syms_14;
     AGroup 16323 5 syms_15; SGroup 8095 14 syms_17]);
   (169021, 20, [AGroup 5 1 [sym_ppDirective]; AGroup 16307 1 [anon_sym_LBRACK];
     AGroup 16309 1 [anon_sym_LPAREN]; AGroup 16313 1 [anon_sym_POUND];
     AGroup 16327 1 [sym_kSpecialize]; AGroup 16331 1 [sym_kIf]; AGroup 16333 1 [sym_kInherited];
     AGroup 18278 1 [sym_kString]; AGroup 3 2 syms_5; AGroup 16311 2 syms_6;
     AGroup 16315 2 syms_7; AGroup 16317 2 syms_8; AGroup 16319 2 syms_9; AGroup 16321 2 syms_10;
     AGroup 16329 2 syms_11; SGroup 8420 2 syms_12; SGroup 7219 3 syms_13; SGroup 8101 4 syms_14;
     AGroup 16323 5 syms_15; SGroup 8095 14 syms_17]);
   (169112, 20, [AGroup 5 1 [sym_ppDirective]; AGroup 15761 1 [anon_sym_LBRACK];
     AGroup 15763 1 [anon_sym_LPAREN]; AGroup 15767 1 [anon_sym_POUND];
     AGroup 15781 1 [sym_kSpecialize]; AGroup 15787 1 [sym_kInherited]; AGroup 16229 1 [sym_kIf];
     AGroup 17864 1 [sym_kString]; AGroup 3 2 syms_5; AGroup 15765 2 syms_6;
     AGroup 15769 2 syms_7; AGroup 15771 2 syms_8; AGroup 15783 2 syms_11; AGroup 16221 2 syms_9;
     AGroup 16223 2 syms_10; SGroup 9180 2 syms_12; SGroup 7467 3 syms_13;
     SGroup 10031 4 syms_14; AGroup 16225 5 syms_15; SGroup 9076 14 syms_17]);
   (169203, 20, [AGroup 5 1 [sym_ppDirective]; AGroup 15755 1 [sym_kIf]; AGroup 16307 1 [anon_sym_LBRACK];
     AGroup 16309 1 [anon_sym_LPAREN]; AGroup 16313 1 [anon_sym_POUND];
     AGroup 16327 1 [sym_kSpecialize]; AGroup 16333 1 [sym_kInherited];
     AGroup 18278 1 [sym_kString]; AGroup 3 2 syms_5; AGroup 15747 2 syms_9;
     AGroup 15749 2 syms_10; AGroup 16311 2 syms_6; AGroup 16315 2 syms_7; AGroup 16317 2 syms_8;
     AGroup 16329 2 syms_11; SGroup 8420 2 syms_12; SGroup 7219 3 syms_13;
     SGroup 10298 4 syms_14; AGroup 18282 5 syms_15; SGroup 8103 14 syms_17]);
   (169294, 5, [AGroup 5 1 [sym_ppDirective]; AGroup 3 2 syms_5; AGroup 15504 4 syms_25;
     AGroup 15403 18 syms_36; AGroup 15502 25 syms_158]);
   (169355, 5, [AGroup 5 1 [sym_ppDirective]; AGroup 3 2 syms_5; AGroup 15484 4 syms_25;
     AGroup 15403 18 syms_36; AGroup 15482 25 syms_158]);
   (169416, 20, [AGroup 5 1 [sym_ppDirective]; AGroup 16307 1 [anon_sym_LBRACK];
     AGroup 16309 1 [anon_sym_LPAREN]; AGroup 16313 1 [anon_sym_POUND];
     AGroup 16327 1 [sym_kSpecialize]; AGroup 16331 1 [sym_kIf]; AGroup 16333 1 [sym_kInherited];
     AGroup 18278 1 [sym_kString]; AGroup 3 2 syms_5; AGroup 16311 2 syms_6;
     AGroup 16315 2 syms_7; AGroup 16317 2 syms_8; AGroup 16319 2 syms_9; AGroup 16321 2 syms_10;
     AGroup 16329 2 syms_11; SGroup 8420 2 syms_12; SGroup 7219 3 syms_13; SGroup 8104 4 syms_14;
     AGroup 16323 5 syms_15; SGroup 8095 14 syms_17]);
   (169507, 20, [AGroup 5 1 [sym_ppDirective]; AGroup 15831 1 [anon_sym_LBRACK];
     AGroup 15833 1 [anon_sym_LPAREN]; AGroup 15837 1 [anon_sym_POUND];
     AGroup 15851 1 [sym_kSpecialize]; AGroup 15855 1 [sym_kIf]; AGroup 15857 1 [sym_kInherited];
     AGroup 17312 1 [sym_kString]; AGroup 3 2 syms_5; AGroup 15835 2 syms_6;
     AGroup 15839 2 syms_7; AGroup 15841 2 syms_8; AGroup 15843 2 syms_9; AGroup 15845 2 syms_10;
     AGroup 15853 2 syms_11; SGroup 9267 2 syms_12; SGroup 7556 3 syms_13; SGroup 9715 4 syms_14;
     AGroup 15847 5 syms_15; SGroup 8649 14 syms_17]);
   (169598, 20, [AGroup 5 1 [sym_ppDirective]; AGroup 15755 1 [sym_kIf]; AGroup 16101 1 [anon_sym_LBRACK];
     AGroup 16103 1 [anon_sym_LPAREN]; AGroup 16107 1 [anon_sym_POUND];
     AGroup 16121 1 [sym_kSpecialize]; AGroup 16127 1 [sym_kInherited];
     AGroup 17012 1 [sym_kString]; AGroup 3 2 syms_5; AGroup 15747 2 syms_9;
     AGroup 15749 2 syms_10; AGroup 16105 2 syms_6; AGroup 16109 2 syms_7; AGroup 16111 2 syms_8;
     AGroup 16123 2 syms_11; SGroup 8060 2 syms_12; SGroup 7068 3 syms_13;
     SGroup 10302 4 syms_14; AGroup 18284 5 syms_15; SGroup 7853 14 syms_17]);
   (169689, 20, [AGroup 5 1 [sym_ppDirective]; AGroup 15987 1 [anon_sym_LBRACK];
     AGroup 15989 1 [anon_sym_LPAREN]; AGroup 15993 1 [anon_sym_POUND];
     AGroup 16007 1 [sym_kSpecialize]; AGroup 16011 1 [sym_kIf]; AGroup 16013 1 [sym_kInherited];
     AGroup 18254 1 [sym_kString]; AGroup 3 2 syms_5; AGroup 15991 2 syms_6;
     AGroup 15995 2 syms_7; AGroup 15997 2 syms_8; AGroup 15999 2 syms_9; AGroup 16001 2 syms_10;
     AGroup 16009 2 syms_11; SGroup 9525 2 syms_12; SGroup 7769 3 syms_13; SGroup 9317 4 syms_14;
     AGroup 16003 5 syms_15; SGroup 9072 14 syms_17]);
   (169780, 5, [AGroup 5 1 [sym_ppDirective]; AGroup 3 2 syms_5; AGroup 15492 4 syms_25;
     AGroup 15403 18 syms_36; AGroup 15490 25 syms_158]);
   (169841, 5, [AGroup 5 1 [sym_ppDirective]; AGroup 3 2 syms_5; AGroup 15401 4 syms_25;
     AGroup 15403 18 syms_36; AGroup 15399 25 syms_158]);
   (169902, 20, [AGroup 5 1 [sym_ppDirective]; AGroup 15831 1 [anon_sym_LBRACK];
     AGroup 15833 1 [anon_sym_LPAREN]; AGroup 15837 1 [anon_sym_POUND];
     AGroup 15851 1 [sym_kSpecialize]; AGroup 15855 1 [sym_kIf]; AGroup 15857 1 [sym_kInherited];
     AGroup 17312 1 [sym_kString]; AGroup 3 2 syms_5; AGroup 15835 2 syms_6;
     AGroup 15839 2 syms_7; AGroup 15841 2 syms_8; AGroup 15843 2 syms_9; AGroup 15845 2 syms_10;
     AGroup 15853 2 syms_11; SGroup 9267 2 syms_12; SGroup 7556 3 syms_13; SGroup 9765 4 syms_14;
     AGroup 15847 5 syms_15; SGroup 8649 14 syms_17]);
   (169993, 20, [AGroup 5 1 [sym_ppDirective]; AGroup 15831 1 [anon_sym_LBRACK];
     AGroup 15833 1 [anon_sym_LPAREN]; AGroup 15837 1 [anon_sym_POUND];
     AGroup 15851 1 [sym_kSpecialize]; AGroup 15855 1 [sym_kIf]; AGroup 15857 1 [sym_kInherited];
     AGroup 17312 1 [sym_kString]; AGroup 3 2 syms_5; AGroup 15835 2 syms_6;
     AGroup 15839 2 syms_7; AGroup 15841 2 syms_8; AGroup 15843 2 syms_9; AGroup 15845 2 syms_10;
     AGroup 15853 2 syms_11; SGroup 9267 2 syms_12; SGroup 7556 3 syms_13; SGroup 9769 4 syms_14;
     AGroup 15847 5 syms_15; SGroup 8649 14 syms_17]);
   (170084, 8, [AGroup 5 1 [sym_ppDirective]; AGroup 3 2 syms_5; SGroup 8420 2 syms_12;
     SGroup 7219 3 syms_13; SGroup 8075 4 syms_14; AGroup 18189 5 syms_150;
     SGroup 8095 14 syms_17; AGroup 18187 19 syms_151]);
   (170151, 20, [AGroup 5 1 [sym_ppDirective]; AGroup 15755 1 [sym_kIf]; AGroup 16021 1 [anon_sym_LBRACK];
     AGroup 16023 1 [anon_sym_LPAREN]; AGroup 16027 1 [anon_sym_POUND];
     AGroup 16041 1 [sym_kSpecialize]; AGroup 16047 1 [sym_kInherited];
     AGroup 17344 1 [sym_kString]; AGroup 3 2 syms_5; AGroup 15747 2 syms_9;
     AGroup 15749 2 syms_10; AGroup 16025 2 syms_6; AGroup 16029 2 syms_7; AGroup 16031 2 syms_8;
     AGroup 16043 2 syms_11; SGroup 9151 2 syms_12; SGroup 7393 3 syms_13;
     SGroup 10307 4 syms_14; AGroup 18286 5 syms_15; SGroup 8767 14 syms_17]);
   (170242, 5, [AGroup 5 1 [sym_ppDirective]; AGroup 3 2 syms_5; AGroup 15439 4 syms_25;
     AGroup 15403 18 syms_36; AGroup 15437 25 syms_158]);
   (170303, 5, [AGroup 5 1 [sym_ppDirective]; AGroup 3 2 syms_5; AGroup 15488 4 syms_25;
     AGroup 15403 18 syms_36; AGroup 15486 25 syms_158]);
   (170364, 20, [AGroup 5 1 [sym_ppDirective]; AGroup 15647 1 [anon_sym_LBRACK];
     AGroup 15653 1 [anon_sym_POUND]; AGroup 15667 1 [sym_kSpecialize];
     AGroup 15673 1 [sym_kInherited]; AGroup 15675 1 [sym_kString];
     AGroup 15745 1 [anon_sym_LPAREN]; AGroup 15755 1 [sym_kIf]; AGroup 3 2 syms_5;
     AGroup 15651 2 syms_6; AGroup 15655 2 syms_7; AGroup 15657 2 syms_8; AGroup 15669 2 syms_11;
     AGroup 15747 2 syms_9; AGroup 15749 2 syms_10; SGroup 8129 2 syms_12; SGroup 7100 3 syms_13;
     SGroup 10036 4 syms_14; AGroup 15751 5 syms_15; SGroup 8464 14 syms_17]);
   (170455, 20, [AGroup 5 1 [sym_ppDirective]; AGroup 16307 1 [anon_sym_LBRACK];
     AGroup 16309 1 [anon_sym_LPAREN]; AGroup 16313 1 [anon_sym_POUND];
     AGroup 16327 1 [sym_kSpecialize]; AGroup 16331 1 [sym_kIf]; AGroup 16333 1 [sym_kInherited];
     AGroup 18278 1 [sym_kString]; AGroup 3 2 syms_5; AGroup 16311 2 syms_6;
     AGroup 16315 2 syms_7; AGroup 16317 2 syms_8; AGroup 16319 2 syms_9; AGroup 16321 2 syms_10;
     AGroup 16329 2 syms_11; SGroup 8420 2 syms_12; SGroup 7219 3 syms_13; SGroup 8107 4 syms_14;
     AGroup 16323 5 syms_15; SGroup 8095 14 syms_17]);
   (170546, 5, [AGroup 5 1 [sym_ppDirective]; AGroup 3 2 syms_5; AGroup 15496 4 syms_25;
     AGroup 15403 18 syms_36; AGroup 15494 25 syms_158]);
   (170607, 20, [AGroup 5 1 [sym_ppDirective]; AGroup 16469 1 [anon_sym_LBRACK];
     AGroup 16471 1 [anon_sym_LPAREN]; AGroup 16475 1 [anon_sym_POUND];
     AGroup 16489 1 [sym_kSpecialize]; AGroup 16493 1 [sym_kIf]; AGroup 16495 1 [sym_kInherited];
     AGroup 17602 1 [sym_kString]; AGroup 3 2 syms_5; AGroup 16473 2 syms_6;
     AGroup 16477 2 syms_7; AGroup 16479 2 syms_8; AGroup 16481 2 syms_9; AGroup 16483 2 syms_10;
     AGroup 16491 2 syms_11; SGroup 8445 2 syms_12; SGroup 7193 3 syms_13; SGroup 9258 4 syms_14;
     AGroup 16485 5 syms_15; SGroup 7957 14 syms_17]);
   (170698, 20, [AGroup 5 1 [sym_ppDirective]; AGroup 16405 1 [anon_sym_LBRACK];
     AGroup 16407 1 [anon_sym_LPAREN]; AGroup 16411 1 [anon_sym_POUND];
     AGroup 16425 1 [sym_kSpecialize]; AGroup 16429 1 [sym_kIf]; AGroup 16431 1 [sym_kInherited];
     AGroup 18223 1 [sym_kString]; AGroup 3 2 syms_5; AGroup 16409 2 syms_6;
     AGroup 16413 2 syms_7; AGroup 16415 2 syms_8; AGroup 16417 2 syms_9; AGroup 16419 2 syms_10;
     AGroup 16427 2 syms_11; SGroup 9247 2 syms_12; SGroup 7508 3 syms_13; SGroup 8825 4 syms_14;
     AGroup 16421 5 syms_15; SGroup 8844 14 syms_17]);
   (170789, 20, [AGroup 5 1 [sym_ppDirective]; AGroup 16469 1 [anon_sym_LBRACK];
     AGroup 16471 1 [anon_sym_LPAREN]; AGroup 16475 1 [anon_sym_POUND];
     AGroup 16489 1 [sym_kSpecialize]; AGroup 16493 1 [sym_kIf]; AGroup 16495 1 [sym_kInherited];
     AGroup 17602 1 [sym_kString]; AGroup 3 2 syms_5; AGroup 16473 2 syms_6;
     AGroup 16477 2 syms_7; AGroup 16479 2 syms_8; AGroup 16481 2 syms_9; AGroup 16483 2 syms_10;
     AGroup 16491 2 syms_11; SGroup 8445 2 syms_12; SGroup 7193 3 syms_13; SGroup 9274 4 syms_14;
     AGroup 16485 5 syms_15; SGroup 7957 14 syms_17]);
   (170880, 20, [AGroup 5 1 [sym_ppDirective]; AGroup 16469 1 [anon_sym_LBRACK];
     AGroup 16471 1 [anon_sym_LPAREN]; AGroup 16475 1 [anon_sym_POUND];
     AGroup 16489 1 [sym_kSpecialize]; AGroup 16493 1 [sym_kIf]; AGroup 16495 1 [sym_kInherited];
     AGroup 17602 1 [sym_kString]; AGroup 3 2 syms_5; AGroup 16473 2 syms_6;
     AGroup 16477 2 syms_7; AGroup 16479 2 syms_8; AGroup 16481 2 syms_9; AGroup 16483 2 syms_10;
     AGroup 16491 2 syms_11; SGroup 8445 2 syms_12; SGroup 7193 3 syms_13; SGroup 9275 4 syms_14;
     AGroup 16485 5 syms_15; SGroup 7957 14 syms_17]);
   (170971, 8, [AGroup 5 1 [sym_ppDirective]; AGroup 3 2 syms_5; SGroup 8129 2 syms_12;
     SGroup 7100 3 syms_13; SGroup 7789 4 syms_14; AGroup 18189 5 syms_150;
     SGroup 7805 14 syms_17; AGroup 18187 19 syms_151]);
   (171038, 20, [AGroup 5 1 [sym_ppDirective]; AGroup 16405 1 [anon_sym_LBRACK];
     AGroup 16407 1 [anon_sym_LPAREN]; AGroup 16411 1 [anon_sym_POUND];
     AGroup 16425 1 [sym_kSpecialize]; AGroup 16429 1 [sym_kIf]; AGroup 16431 1 [sym_kInherited];
     AGroup 18223 1 [sym_kString]; AGroup 3 2 syms_5; AGroup 16409 2 syms_6;
     AGroup 16413 2 syms_7; AGroup 16415 2 syms_8; AGroup 16417 2 syms_9; AGroup 16419 2 syms_10;
     AGroup 16427 2 syms_11; SGroup 9247 2 syms_12; SGroup 7508 3 syms_13; SGroup 8851 4 syms_14;
     AGroup 16421 5 syms_15; SGroup 8844 14 syms_17]);
   (171129, 20, [AGroup 5 1 [sym_ppDirective]; AGroup 16405 1 [anon_sym_LBRACK];
     AGroup 16407 1 [anon_sym_LPAREN]; AGroup 16411 1 [anon_sym_POUND];
     AGroup 16425 1 [sym_kSpecialize]; AGroup 16429 1 [sym_kIf]; AGroup 16431 1 [sym_kInherited];
     AGroup 18223 1 [sym_kString]; AGroup 3 2 syms_5; AGroup 16409 2 syms_6;
     AGroup 16413 2 syms_7; AGroup 16415 2 syms_8; AGroup 16417 2 syms_9; AGroup 16419 2 syms_10;
     AGroup 16427 2 syms_11; SGroup 9247 2 syms_12; SGroup 7508 3 syms_13; SGroup 8852 4 syms_14;
     AGroup 16421 5 syms_15; SGroup 8844 14 syms_17]);
   (171220, 20, [AGroup 5 1 [sym_ppDirective]; AGroup 16405 1 [anon_sym_LBRACK];
     AGroup 16407 1 [anon_sym_LPAREN]; AGroup 16411 1 [anon_sym_POUND];
     AGroup 16425 1 [sym_kSpecialize]; AGroup 16429 1 [sym_kIf]; AGroup 16431 1 [sym_kInherited];
     AGroup 18223 1 [sym_kString]; AGroup 3 2 syms_5; AGroup 16409 2 syms_6;
     AGroup 16413 2 syms_7; AGroup 16415 2 syms_8; AGroup 16417 2 syms_9; AGroup 16419 2 syms_10;
     AGroup 16427 2 syms_11; SGroup 9247 2 syms_12; SGroup 7508 3 syms_13; SGroup 8853 4 syms_14;
     AGroup 16421 5 syms_15; SGroup 8844 14 syms_17]);
   (171311, 21, [AGroup 5 1 [sym_ppDirective]; AGroup 16405 1 [anon_sym_LBRACK];
     AGroup 16407 1 [anon_sym_LPAREN]; AGroup 16411 1 [anon_sym_POUND]; AGroup 16419 1 [sym_kAt];
     AGroup 16425 1 [sym_kSpecialize]; AGroup 16429 1 [sym_kIf]; AGroup 16431 1 [sym_kInherited];
     AGroup 18223 1 [sym_kString]; AGroup 18288 1 [sym_kNot]; AGroup 3 2 syms_5;
     AGroup 16409 2 syms_6; AGroup 16413 2 syms_7; AGroup 16415 2 syms_8; AGroup 16417 2 syms_9;
     AGroup 16427 2 syms_11; SGroup 9247 2 syms_12; SGroup 7508 3 syms_13; SGroup 8853 4 syms_14;
     AGroup 16421 5 syms_15; SGroup 8844 14 syms_17]);
   (171404, 20, [AGroup 5 1 [sym_ppDirective]; AGroup 16405 1 [anon_sym_LBRACK];
     AGroup 16407 1 [anon_sym_LPAREN]; AGroup 16411 1 [anon_sym_POUND];
     AGroup 16425 1 [sym_kSpecialize]; AGroup 16429 1 [sym_kIf]; AGroup 16431 1 [sym_kInherited];
     AGroup 18223 1 [sym_kString]; AGroup 3 2 syms_5; AGroup 16409 2 syms_6;
     AGroup 16413 2 syms_7; AGroup 16415 2 syms_8; AGroup 16417 2 syms_9; AGroup 16419 2 syms_10;
     AGroup 16427 2 syms_11; SGroup 9247 2 syms_12; SGroup 7508 3 syms_13; SGroup 8854 4 syms_14;
     AGroup 16421 5 syms_15; SGroup 8844 14 syms_17]);
   (171495, 20, [AGroup 5 1 [sym_ppDirective]; AGroup 15831 1 [anon_sym_LBRACK];
     AGroup 15833 1 [anon_sym_LPAREN]; AGroup 15837 1 [anon_sym_POUND];
     AGroup 15851 1 [sym_kSpecialize]; AGroup 15855 1 [sym_kIf]; AGroup 15857 1 [sym_kInherited];
     AGroup 17312 1 [sym_kString]; AGroup 3 2 syms_5; AGroup 15835 2 syms_6;
     AGroup 15839 2 syms_7; AGroup 15841 2 syms_8; AGroup 15843 2 syms_9; AGroup 15845 2 syms_10;
     AGroup 15853 2 syms_11; SGroup 9267 2 syms_12; SGroup 7556 3 syms_13; SGroup 9778 4 syms_14;
     AGroup 15847 5 syms_15; SGroup 8649 14 syms_17]);
   (171586, 20, [AGroup 5 1 [sym_ppDirective]; AGroup 15755 1 [sym_kIf]; AGroup 16405 1 [anon_sym_LBRACK];
     AGroup 16407 1 [anon_sym_LPAREN]; AGroup 16411 1 [anon_sym_POUND];
     AGroup 16425 1 [sym_kSpecialize]; AGroup 16431 1 [sym_kInherited];
     AGroup 18223 1 [sym_kString]; AGroup 3 2 syms_5; AGroup 15747 2 syms_9;
     AGroup 15749 2 syms_10; AGroup 16409 2 syms_6; AGroup 16413 2 syms_7; AGroup 16415 2 syms_8;
     AGroup 16427 2 syms_11; SGroup 9247 2 syms_12; SGroup 7508 3 syms_13;
     SGroup 10271 4 syms_14; AGroup 18290 5 syms_15; SGroup 8855 14 syms_17]);
   (171677, 20, [AGroup 5 1 [sym_ppDirective]; AGroup 15831 1 [anon_sym_LBRACK];
     AGroup 15833 1 [anon_sym_LPAREN]; AGroup 15837 1 [anon_sym_POUND];
     AGroup 15851 1 [sym_kSpecialize]; AGroup 15855 1 [sym_kIf]; AGroup 15857 1 [sym_kInherited];
     AGroup 17312 1 [sym_kString]; AGroup 3 2 syms_5; AGroup 15835 2 syms_6;
     AGroup 15839 2 syms_7; AGroup 15841 2 syms_8; AGroup 15843 2 syms_9; AGroup 15845 2 syms_10;
     AGroup 15853 2 syms_11; SGroup 9267 2 syms_12; SGroup 7556 3 syms_13; SGroup 9809 4 syms_14;
     AGroup 15847 5 syms_15; SGroup 8649 14 syms_17]);
   (171768, 20, [AGroup 5 1 [sym_ppDirective]; AGroup 15831 1 [anon_sym_LBRACK];
     AGroup 15833 1 [anon_sym_LPAREN]; AGroup 15837 1 [anon_sym_POUND];
     AGroup 15851 1 [sym_kSpecialize]; AGroup 15855 1 [sym_kIf]; AGroup 15857 1 [sym_kInherited];
     AGroup 17312 1 [sym_kString]; AGroup 3 2 syms_5; AGroup 15835 2 syms_6;
     AGroup 15839 2 syms_7; AGroup 15841 2 syms_8; AGroup 15843 2 syms_9; AGroup 15845 2 syms_10;
     AGroup 15853 2 syms_11; SGroup 9267 2 syms_12; SGroup 7556 3 syms_13; SGroup 9810 4 syms_14;
     AGroup 15847 5 syms_15; SGroup 8649 14 syms_17]);
   (171859, 8, [AGroup 5 1 [sym_ppDirective]; AGroup 3 2 syms_5; SGroup 9247 2 syms_12;
     SGroup 7508 3 syms_13; SGroup 8825 4 syms_14; AGroup 18189 5 syms_150;
     SGroup 8844 14 syms_17; AGroup 18187 19 syms_151]);
   (171926, 20, [AGroup 5 1 [sym_ppDirective]; AGroup 15987 1 [anon_sym_LBRACK];
     AGroup 15989 1 [anon_sym_LPAREN]; AGroup 15993 1 [anon_sym_POUND];
     AGroup 16007 1 [sym_kSpecialize]; AGroup 16011 1 [sym_kIf]; AGroup 16013 1 [sym_kInherited];
     AGroup 18254 1 [sym_kString]; AGroup 3 2 syms_5; AGroup 15991 2 syms_6;
     AGroup 15995 2 syms_7; AGroup 15997 2 syms_8; AGroup 15999 2 syms_9; AGroup 16001 2 syms_10;
     AGroup 16009 2 syms_11; SGroup 9525 2 syms_12; SGroup 7769 3 syms_13; SGroup 9339 4 syms_14;
     AGroup 16003 5 syms_15; SGroup 9072 14 syms_17]);
   (172017, 20, [AGroup 5 1 [sym_ppDirective]; AGroup 16405 1 [anon_sym_LBRACK];
     AGroup 16407 1 [anon_sym_LPAREN]; AGroup 16411 1 [anon_sym_POUND];
     AGroup 16425 1 [sym_kSpecialize]; AGroup 16429 1 [sym_kIf]; AGroup 16431 1 [sym_kInherited];
     AGroup 18223 1 [sym_kString]; AGroup 3 2 syms_5; AGroup 16409 2 syms_6;
     AGroup 16413 2 syms_7; AGroup 16415 2 syms_8; AGroup 16417 2 syms_9; AGroup 16419 2 syms_10;
     AGroup 16427 2 syms_11; SGroup 9247 2 syms_12; SGroup 7508 3 syms_13; SGroup 8858 4 syms_14;
     AGroup 16421 5 syms_15; SGroup 8844 14 syms_17]);
   (172108, 20, [AGroup 5 1 [sym_ppDirective]; AGroup 927 1 [anon_sym_LBRACK];
     AGroup 929 1 [anon_sym_LPAREN]; AGroup 933 1 [anon_sym_POUND];
     AGroup 949 1 [sym_kSpecialize]; AGroup 967 1 [sym_kInherited]; AGroup 973 1 [sym_kString];
     AGroup 15586 1 [sym_kIf]; AGroup 3 2 syms_5; AGroup 931 2 syms_6; AGroup 935 2 syms_7;
     AGroup 937 2 syms_8; AGroup 939 2 syms_9; AGroup 941 2 syms_10; AGroup 961 2 syms_11;
     SGroup 7570 2 syms_12; SGroup 6915 3 syms_13; SGroup 7441 4 syms_14; AGroup 943 5 syms_15;
     SGroup 7533 14 syms_17]);
   (172199, 20, [AGroup 5 1 [sym_ppDirective]; AGroup 15987 1 [anon_sym_LBRACK];
     AGroup 15989 1 [anon_sym_LPAREN]; AGroup 15993 1 [anon_sym_POUND];
     AGroup 16007 1 [sym_kSpecialize]; AGroup 16011 1 [sym_kIf]; AGroup 16013 1 [sym_kInherited];
     AGroup 18254 1 [sym_kString]; AGroup 3 2 syms_5; AGroup 15991 2 syms_6;
     AGroup 15995 2 syms_7; AGroup 15997 2 syms_8; AGroup 15999 2 syms_9; AGroup 16001 2 syms_10;
     AGroup 16009 2 syms_11; SGroup 9525 2 syms_12; SGroup 7769 3 syms_13; SGroup 9340 4 syms_14;
     AGroup 16003 5 syms_15; SGroup 9072 14 syms_17]);
   (172290, 20, [AGroup 5 1 [sym_ppDirective]; AGroup 15831 1 [anon_sym_LBRACK];
     AGroup 15833 1 [anon_sym_LPAREN]; AGroup 15837 1 [anon_sym_POUND];
     AGroup 15851 1 [sym_kSpecialize]; AGroup 15855 1 [sym_kIf]; AGroup 15857 1 [sym_kInherited];
     AGroup 17312 1 [sym_kString]; AGroup 3 2 syms_5; AGroup 15835 2 syms_6;
     AGroup 15839 2 syms_7; AGroup 15841 2 syms_8; AGroup 15843 2 syms_9; AGroup 15845 2 syms_10;
     AGroup 15853 2 syms_11; SGroup 9267 2 syms_12; SGroup 7556 3 syms_13; SGroup 9644 4 syms_14;
     AGroup 15847 5 syms_15; SGroup 8649 14 syms_17]);
   (172381, 20, [AGroup 5 1 [sym_ppDirective]; AGroup 15987 1 [anon_sym_LBRACK];
     AGroup 15989 1 [anon_sym_LPAREN]; AGroup 15993 1 [anon_sym_POUND];
     AGroup 16007 1 [sym_kSpecialize]; AGroup 16011 1 [sym_kIf]; AGroup 16013 1 [sym_kInherited];
     AGroup 18254 1 [sym_kString]; AGroup 3 2 syms_5; AGroup 15991 2 syms_6;
     AGroup 15995 2 syms_7; AGroup 15997 2 syms_8; AGroup 15999 2 syms_9; AGroup 16001 2 syms_10;
     AGroup 16009 2 syms_11; SGroup 9525 2 syms_12; SGroup 7769 3 syms_13; SGroup 9341 4 syms_14;
     AGroup 16003 5 syms_15; SGroup 9072 14 syms_17]);
   (172472, 20, [AGroup 5 1 [sym_ppDirective]; AGroup 15831 1 [anon_sym_LBRACK];
     AGroup 15833 1 [anon_sym_LPAREN]; AGroup 15837 1 [anon_sym_POUND];
     AGroup 15851 1 [sym_kSpecialize]; AGroup 15855 1 [sym_kIf]; AGroup 15857 1 [sym_kInherited];
     AGroup 17312 1 [sym_kString]; AGroup 3 2 syms_5; AGroup 15835 2 syms_6;
     AGroup 15839 2 syms_7; AGroup 15841 2 syms_8; AGroup 15843 2 syms_9; AGroup 15845 2 syms_10;
     AGroup 15853 2 syms_11; SGroup 9267 2 syms_12; SGroup 7556 3 syms_13; SGroup 9653 4 syms_14;
     AGroup 15847 5 syms_15; SGroup 8649 14 syms_17]);
   (172563, 20, [AGroup 5 1 [sym_ppDirective]; AGroup 15831 1 [anon_sym_LBRACK];
     AGroup 15833 1 [anon_sym_LPAREN]; AGroup 15837 1 [anon_sym_POUND];
     AGroup 15851 1 [sym_kSpecialize]; AGroup 15855 1 [sym_kIf]; AGroup 15857 1 [sym_kInherited];
     AGroup 17312 1 [sym_kString]; AGroup 3 2 syms_5; AGroup 15835 2 syms_6;
     AGroup 15839 2 syms_7; AGroup 15841 2 syms_8; AGroup 15843 2 syms_9; AGroup 15845 2 syms_10;
     AGroup 15853 2 syms_11; SGroup 9267 2 syms_12; SGroup 7556 3 syms_13; SGroup 9655 4 syms_14;
     AGroup 15847 5 syms_15; SGroup 8649 14 syms_17]);
   (172654, 8, [AGroup 5 1 [sym_ppDirective]; AGroup 3 2 syms_5; SGroup 9289 2 syms_12;
     SGroup 7517 3 syms_13; SGroup 8847 4 syms_14; AGroup 18189 5 syms_150;
     SGroup 8867 14 syms_17; AGroup 18187 19 syms_151]);
   (172721, 21, [AGroup 5 1 [sym_ppDirective]; AGroup 15987 1 [anon_sym_LBRACK];
     AGroup 15989 1 [anon_sym_LPAREN]; AGroup 15993 1 [anon_sym_POUND]; AGroup 16001 1 [sym_kAt];
     AGroup 16007 1 [sym_kSpecialize]; AGroup 16011 1 [sym_kIf]; AGroup 16013 1 [sym_kInherited];
     AGroup 18254 1 [sym_kString]; AGroup 18292 1 [sym_kNot]; AGroup 3 2 syms_5;
     AGroup 15991 2 syms_6; AGroup 15995 2 syms_7; AGroup 15997 2 syms_8; AGroup 15999 2 syms_9;
     AGroup 16009 2 syms_11; SGroup 9525 2 syms_12; SGroup 7769 3 syms_13; SGroup 9341 4 syms_14;
     AGroup 16003 5 syms_15; SGroup 9072 14 syms_17]);
   (172814, 20, [AGroup 5 1 [sym_ppDirective]; AGroup 15987 1 [anon_sym_LBRACK];
     AGroup 15989 1 [anon_sym_LPAREN]; AGroup 15993 1 [anon_sym_POUND];
     AGroup 16007 1 [sym_kSpecialize]; AGroup 16011 1 [sym_kIf]; AGroup 16013 1 [sym_kInherited];
     AGroup 18254 1 [sym_kString]; AGroup 3 2 syms_5; AGroup 15991 2 syms_6;
     AGroup 15995 2 syms_7; AGroup 15997 2 syms_8; AGroup 15999 2 syms_9; AGroup 16001 2 syms_10;
     AGroup 16009 2 syms_11; SGroup 9525 2 syms_12; SGroup 7769 3 syms_13; SGroup 9343 4 syms_14;
     AGroup 16003 5 syms_15; SGroup 9072 14 syms_17]);
   (172905, 20, [AGroup 5 1 [sym_ppDirective]; AGroup 15831 1 [anon_sym_LBRACK];
     AGroup 15833 1 [anon_sym_LPAREN]; AGroup 15837 1 [anon_sym_POUND];
     AGroup 15851 1 [sym_kSpecialize]; AGroup 15855 1 [sym_kIf]; AGroup 15857 1 [sym_kInherited];
     AGroup 17312 1 [sym_kString]; AGroup 3 2 syms_5; AGroup 15835 2 syms_6;
     AGroup 15839 2 syms_7; AGroup 15841 2 syms_8; AGroup 15843 2 syms_9; AGroup 15845 2 syms_10;
     AGroup 15853 2 syms_11; SGroup 9267 2 syms_12; SGroup 7556 3 syms_13; SGroup 9706 4 syms_14;
     AGroup 15847 5 syms_15; SGroup 8649 14 syms_17]);
   (172996, 20, [AGroup 5 1 [sym_ppDirective]; AGroup 15831 1 [anon_sym_LBRACK];
     AGroup 15833 1 [anon_sym_LPAREN]; AGroup 15837 1 [anon_sym_POUND];
     AGroup 15851 1 [sym_kSpecialize]; AGroup 15855 1 [sym_kIf]; AGroup 15857 1 [sym_kInherited];
     AGroup 17312 1 [sym_kString]; AGroup 3 2 syms_5; AGroup 15835 2 syms_6;
     AGroup 15839 2 syms_7; AGroup 15841 2 syms_8; AGroup 15843 2 syms_9; AGroup 15845 2 syms_10;
     AGroup 15853 2 syms_11; SGroup 9267 2 syms_12; SGroup 7556 3 syms_13; SGroup 9727 4 syms_14;
     AGroup 15847 5 syms_15; SGroup 8649 14 syms_17]);
   (173087, 20, [AGroup 5 1 [sym_ppDirective]; AGroup 15831 1 [anon_sym_LBRACK];
     AGroup 15833 1 [anon_sym_LPAREN]; AGroup 15837 1 [anon_sym_POUND];
     AGroup 15851 1 [sym_kSpecialize]; AGroup 15855 1 [sym_kIf]; AGroup 15857 1 [sym_kInherited];
     AGroup 17312 1 [sym_kString]; AGroup 3 2 syms_5; AGroup 15835 2 syms_6;
     AGroup 15839 2 syms_7; AGroup 15841 2 syms_8; AGroup 15843 2 syms_9; AGroup 15845 2 syms_10;
     AGroup 15853 2 syms_11; SGroup 9267 2 syms_12; SGroup 7556 3 syms_13; SGroup 9729 4 syms_14;
     AGroup 15847 5 syms_15; SGroup 8649 14 syms_17]);
   (173178, 20, [AGroup 5 1 [sym_ppDirective]; AGroup 16405 1 [anon_sym_LBRACK];
     AGroup 16407 1 [anon_sym_LPAREN]; AGroup 16411 1 [anon_sym_POUND];
     AGroup 16425 1 [sym_kSpecialize]; AGroup 16429 1 [sym_kIf]; AGroup 16431 1 [sym_kInherited];
     AGroup 18223 1 [sym_kString]; AGroup 3 2 syms_5; AGroup 16409 2 syms_6;
     AGroup 16413 2 syms_7; AGroup 16415 2 syms_8; AGroup 16417 2 syms_9; AGroup 16419 2 syms_10;
     AGroup 16427 2 syms_11; SGroup 9247 2 syms_12; SGroup 7508 3 syms_13; SGroup 8863 4 syms_14;
     AGroup 16421 5 syms_15; SGroup 8844 14 syms_17]);
   (173269, 8, [AGroup 5 1 [sym_ppDirective]; AGroup 3 2 syms_5; SGroup 7901 2 syms_12;
     SGroup 7014 3 syms_13; SGroup 7754 4 syms_14; AGroup 18189 5 syms_150;
     SGroup 7757 14 syms_17; AGroup 18187 19 syms_151]);
   (173336, 20, [AGroup 5 1 [sym_ppDirective]; AGroup 927 1 [anon_sym_LBRACK];
     AGroup 929 1 [anon_sym_LPAREN]; AGroup 933 1 [anon_sym_POUND];
     AGroup 949 1 [sym_kSpecialize]; AGroup 967 1 [sym_kInherited]; AGroup 973 1 [sym_kString];
     AGroup 15586 1 [sym_kIf]; AGroup 3 2 syms_5; AGroup 931 2 syms_6; AGroup 935 2 syms_7;
     AGroup 937 2 syms_8; AGroup 939 2 syms_9; AGroup 941 2 syms_10; AGroup 961 2 syms_11;
     SGroup 7570 2 syms_12; SGroup 6915 3 syms_13; SGroup 7482 4 syms_14; AGroup 943 5 syms_15;
     SGroup 7533 14 syms_17]);
   (173427, 20, [AGroup 5 1 [sym_ppDirective]; AGroup 15831 1 [anon_sym_LBRACK];
     AGroup 15833 1 [anon_sym_LPAREN]; AGroup 15837 1 [anon_sym_POUND];
     AGroup 15851 1 [sym_kSpecialize]; AGroup 15855 1 [sym_kIf]; AGroup 15857 1 [sym_kInherited];
     AGroup 17312 1 [sym_kString]; AGroup 3 2 syms_5; AGroup 15835 2 syms_6;
     AGroup 15839 2 syms_7; AGroup 15841 2 syms_8; AGroup 15843 2 syms_9; AGroup 15845 2 syms_10;
     AGroup 15853 2 syms_11; SGroup 9267 2 syms_12; SGroup 7556 3 syms_13; SGroup 9791 4 syms_14;
     AGroup 15847 5 syms_15; SGroup 8649 14 syms_17]);
   (173518, 20, [AGroup 5 1 [sym_ppDirective]; AGroup 15831 1 [anon_sym_LBRACK];
     AGroup 15833 1 [anon_sym_LPAREN]; AGroup 15837 1 [anon_sym_POUND];
     AGroup 15851 1 [sym_kSpecialize]; AGroup 15855 1 [sym_kIf]; AGroup 15857 1 [sym_kInherited];
     AGroup 17312 1 [sym_kString]; AGroup 3 2 syms_5; AGroup 15835 2 syms_6;
     AGroup 15839 2 syms_7; AGroup 15841 2 syms_8; AGroup 15843 2 syms_9; AGroup 15845 2 syms_10;
     AGroup 15853 2 syms_11; SGroup 9267 2 syms_12; SGroup 7556 3 syms_13; SGroup 9621 4 syms_14;
     AGroup 15847 5 syms_15; SGroup 8649 14 syms_17]);
   (173609, 20, [AGroup 5 1 [sym_ppDirective]; AGroup 15831 1 [anon_sym_LBRACK];
     AGroup 15833 1 [anon_sym_LPAREN]; AGroup 15837 1 [anon_sym_POUND];
     AGroup 15851 1 [sym_kSpecialize]; AGroup 15855 1 [sym_kIf]; AGroup 15857 1 [sym_kInherited];
     AGroup 17312 1 [sym_kString]; AGroup 3 2 syms_5; AGroup 15835 2 syms_6;
     AGroup 15839 2 syms_7; AGroup 15841 2 syms_8; AGroup 15843 2 syms_9; AGroup 15845 2 syms_10;
     AGroup 15853 2 syms_11; SGroup 9267 2 syms_12; SGroup 7556 3 syms_13; SGroup 9812 4 syms_14;
     AGroup 15847 5 syms_15; SGroup 8649 14 syms_17]);
   (173700, 20, [AGroup 5 1 [sym_ppDirective]; AGroup 927 1 [anon_sym_LBRACK];
     AGroup 929 1 [anon_sym_LPAREN]; AGroup 933 1 [anon_sym_POUND];
     AGroup 949 1 [sym_kSpecialize]; AGroup 967 1 [sym_kInherited]; AGroup 973 1 [sym_kString];
     AGroup 15586 1 [sym_kIf]; AGroup 3 2 syms_5; AGroup 931 2 syms_6; AGroup 935 2 syms_7;
     AGroup 937 2 syms_8; AGroup 939 2 syms_9; AGroup 941 2 syms_10; AGroup 961 2 syms_11;
     SGroup 7570 2 syms_12; SGroup 6915 3 syms_13; SGroup 7483 4 syms_14; AGroup 943 5 syms_15;
     SGroup 7533 14 syms_17]);
   (173791, 8, [AGroup 5 1 [sym_ppDirective]; AGroup 3 2 syms_5; SGroup 7552 2 syms_12;
     SGroup 6534 3 syms_13; SGroup 7336 4 syms_14; AGroup 18189 5 syms_150;
     SGroup 7341 14 syms_17; AGroup 18187 19 syms_151]);
   (173858, 20, [AGroup 5 1 [sym_ppDirective]; AGroup 927 1 [anon_sym_LBRACK];
     AGroup 929 1 [anon_sym_LPAREN]; AGroup 933 1 [anon_sym_POUND];
     AGroup 949 1 [sym_kSpecialize]; AGroup 967 1 [sym_kInherited]; AGroup 973 1 [sym_kString];
     AGroup 15586 1 [sym_kIf]; AGroup 3 2 syms_5; AGroup 931 2 syms_6; AGroup 935 2 syms_7;
     AGroup 937 2 syms_8; AGroup 939 2 syms_9; AGroup 941 2 syms_10; AGroup 961 2 syms_11;
     SGroup 7570 2 syms_12; SGroup 6915 3 syms_13; SGroup 7484 4 syms_14; AGroup 943 5 syms_15;
     SGroup 7533 14 syms_17]);
   (173949, 4, [AGroup 5 1 [sym_ppDirective]; AGroup 3 2 syms_5; AGroup 15295 4 syms_25;
     AGroup 15293 43 syms_159]);
   (174008, 20, [AGroup 5 1 [sym_ppDirective]; AGroup 16629 1 [anon_sym_LBRACK];
     AGroup 16631 1 [anon_sym_LPAREN]; AGroup 16635 1 [anon_sym_POUND];
     AGroup 16649 1 [sym_kSpecialize]; AGroup 16653 1 [sym_kIf]; AGroup 16655 1 [sym_kInherited];
     AGroup 18203 1 [sym_kString]; AGroup 3 2 syms_5; AGroup 16633 2 syms_6;
     AGroup 16637 2 syms_7; AGroup 16639 2 syms_8; AGroup 16641 2 syms_9; AGroup 16643 2 syms_10;
     AGroup 16651 2 syms_11; SGroup 9289 2 syms_12; SGroup 7517 3 syms_13; SGroup 8847 4 syms_14;
     AGroup 16645 5 syms_15; SGroup 8867 14 syms_17]);
   (174099, 21, [AGroup 5 1 [sym_ppDirective]; AGroup 927 1 [anon_sym_LBRACK];
     AGroup 929 1 [anon_sym_LPAREN]; AGroup 933 1 [anon_sym_POUND]; AGroup 941 1 [sym_kAt];
     AGroup 949 1 [sym_kSpecialize]; AGroup 967 1 [sym_kInherited]; AGroup 973 1 [sym_kString];
     AGroup 15586 1 [sym_kIf]; AGroup 18294 1 [sym_kNot]; AGroup 3 2 syms_5; AGroup 931 2 syms_6;
     AGroup 935 2 syms_7; AGroup 937 2 syms_8; AGroup 939 2 syms_9; AGroup 961 2 syms_11;
     SGroup 7570 2 syms_12; SGroup 6915 3 syms_13; SGroup 7484 4 syms_14; AGroup 943 5 syms_15;
     SGroup 7533 14 syms_17]);
   (174192, 20, [AGroup 5 1 [sym_ppDirective]; AGroup 15831 1 [anon_sym_LBRACK];
     AGroup 15833 1 [anon_sym_LPAREN]; AGroup 15837 1 [anon_sym_POUND];
     AGroup 15851 1 [sym_kSpecialize]; AGroup 15855 1 [sym_kIf]; AGroup 15857 1 [sym_kInherited];
     AGroup 17312 1 [sym_kString]; AGroup 3 2 syms_5; AGroup 15835 2 syms_6;
     AGroup 15839 2 syms_7; AGroup 15841 2 syms_8; AGroup 15843 2 syms_9; AGroup 15845 2 syms_10;
     AGroup 15853 2 syms_11; SGroup 9267 2 syms_12; SGroup 7556 3 syms_13; SGroup 9763 4 syms_14;
     AGroup 15847 5 syms_15; SGroup 8649 14 syms_17]);
   (174283, 4, [AGroup 5 1 [sym_ppDirective]; AGroup 3 2 syms_5; AGroup 15355 4 syms_25;
     AGroup 15353 43 syms_159]);
   (174342, 20, [AGroup 5 1 [sym_ppDirective]; AGroup 16629 1 [anon_sym_LBRACK];
     AGroup 16631 1 [anon_sym_LPAREN]; AGroup 16635 1 [anon_sym_POUND];
     AGroup 16649 1 [sym_kSpecialize]; AGroup 16653 1 [sym_kIf]; AGroup 16655 1 [sym_kInherited];
     AGroup 18203 1 [sym_kString]; AGroup 3 2 syms_5; AGroup 16633 2 syms_6;
     AGroup 16637 2 syms_7; AGroup 16639 2 syms_8; AGroup 16641 2 syms_9; AGroup 16643 2 syms_10;
     AGroup 16651 2 syms_11; SGroup 9289 2 syms_12; SGroup 7517 3 syms_13; SGroup 8873 4 syms_14;
     AGroup 16645 5 syms_15; SGroup 8867 14 syms_17]);
   (174433, 20, [AGroup 5 1 [sym_ppDirective]; AGroup 15831 1 [anon_sym_LBRACK];
     AGroup 15833 1 [anon_sym_LPAREN]; AGroup 15837 1 [anon_sym_POUND];
     AGroup 15851 1 [sym_kSpecialize]; AGroup 15855 1 [sym_kIf]; AGroup 15857 1 [sym_kInherited];
     AGroup 17312 1 [sym_kString]; AGroup 3 2 syms_5; AGroup 15835 2 syms_6;
     AGroup 15839 2 syms_7; AGroup 15841 2 syms_8; AGroup 15843 2 syms_9; AGroup 15845 2 syms_10;
     AGroup 15853 2 syms_11; SGroup 9267 2 syms_12; SGroup 7556 3 syms_13; SGroup 9648 4 syms_14;
     AGroup 15847 5 syms_15; SGroup 8649 14 syms_17]);
   (174524, 20, [AGroup 5 1 [sym_ppDirective]; AGroup 15831 1 [anon_sym_LBRACK];
     AGroup 15833 1 [anon_sym_LPAREN]; AGroup 15837 1 [anon_sym_POUND];
     AGroup 15851 1 [sym_kSpecialize]; AGroup 15855 1 [sym_kIf]; AGroup 15857 1 [sym_kInherited];
     AGroup 17312 1 [sym_kString]; AGroup 3 2 syms_5; AGroup 15835 2 syms_6;
     AGroup 15839 2 syms_7; AGroup 15841 2 syms_8; AGroup 15843 2 syms_9; AGroup 15845 2 syms_10;
     AGroup 15853 2 syms_11; SGroup 9267 2 syms_12; SGroup 7556 3 syms_13; SGroup 9651 4 syms_14;
     AGroup 15847 5 syms_15; SGroup 8649 14 syms_17]);
   (174615, 20, [AGroup 5 1 [sym_ppDirective]; AGroup 16629 1 [anon_sym_LBRACK];
     AGroup 16631 1 [anon_sym_LPAREN]; AGroup 16635 1 [anon_sym_POUND];
     AGroup 16649 1 [sym_kSpecialize]; AGroup 16653 1 [sym_kIf]; AGroup 16655 1 [sym_kInherited];
     AGroup 18203 1 [sym_kString]; AGroup 3 2 syms_5; AGroup 16633 2 syms_6;
     AGroup 16637 2 syms_7; AGroup 16639 2 syms_8; AGroup 16641 2 syms_9; AGroup 16643 2 syms_10;
     AGroup 16651 2 syms_11; SGroup 9289 2 syms_12; SGroup 7517 3 syms_13; SGroup 8874 4 syms_14;
     AGroup 16645 5 syms_15; SGroup 8867 14 syms_17]);
   (174706, 20, [AGroup 5 1 [sym_ppDirective]; AGroup 16629 1 [anon_sym_LBRACK];
     AGroup 16631 1 [anon_sym_LPAREN]; AGroup 16635 1 [anon_sym_POUND];
     AGroup 16649 1 [sym_kSpecialize]; AGroup 16653 1 [sym_kIf]; AGroup 16655 1 [sym_kInherited];
     AGroup 18203 1 [sym_kString]; AGroup 3 2 syms_5; AGroup 16633 2 syms_6;
     AGroup 16637 2 syms_7; AGroup 16639 2 syms_8; AGroup 16641 2 syms_9; AGroup 16643 2 syms_10;
     AGroup 16651 2 syms_11; SGroup 9289 2 syms_12; SGroup 7517 3 syms_13; SGroup 8875 4 syms_14;
     AGroup 16645 5 syms_15; SGroup 8867 14 syms_17]);
   (174797, 8, [AGroup 5 1 [sym_ppDirective]; AGroup 3 2 syms_5; SGroup 9361 2 syms_12;
     SGroup 7548 3 syms_13; SGroup 8921 4 syms_14; AGroup 18189 5 syms_150;
     SGroup 8938 14 syms_17; AGroup 18187 19 syms_151]);
   (174864, 21, [AGroup 5 1 [sym_ppDirective]; AGroup 16629 1 [anon_sym_LBRACK];
     AGroup 16631 1 [anon_sym_LPAREN]; AGroup 16635 1 [anon_sym_POUND]; AGroup 16643 1 [sym_kAt];
     AGroup 16649 1 [sym_kSpecialize]; AGroup 16653 1 [sym_kIf]; AGroup 16655 1 [sym_kInherited];
     AGroup 18203 1 [sym_kString]; AGroup 18296 1 [sym_kNot]; AGroup 3 2 syms_5;
     AGroup 16633 2 syms_6; AGroup 16637 2 syms_7; AGroup 16639 2 syms_8; AGroup 16641 2 syms_9;
     AGroup 16651 2 syms_11; SGroup 9289 2 syms_12; SGroup 7517 3 syms_13; SGroup 8875 4 syms_14;
     AGroup 16645 5 syms_15; SGroup 8867 14 syms_17]);
   (174957, 20, [AGroup 5 1 [sym_ppDirective]; AGroup 16629 1 [anon_sym_LBRACK];
     AGroup 16631 1 [anon_sym_LPAREN]; AGroup 16635 1 [anon_sym_POUND];
     AGroup 16649 1 [sym_kSpecialize]; AGroup 16653 1 [sym_kIf]; AGroup 16655 1 [sym_kInherited];
     AGroup 18203 1 [sym_kString]; AGroup 3 2 syms_5; AGroup 16633 2 syms_6;
     AGroup 16637 2 syms_7; AGroup 16639 2 syms_8; AGroup 16641 2 syms_9; AGroup 16643 2 syms_10;
     AGroup 16651 2 syms_11; SGroup 9289 2 syms_12; SGroup 7517 3 syms_13; SGroup 8877 4 syms_14;
     AGroup 16645 5 syms_15; SGroup 8867 14 syms_17]);
   (175048, 20, [AGroup 5 1 [sym_ppDirective]; AGroup 927 1 [anon_sym_LBRACK];
     AGroup 929 1 [anon_sym_LPAREN]; AGroup 933 1 [anon_sym_POUND];
     AGroup 949 1 [sym_kSpecialize]; AGroup 967 1 [sym_kInherited]; AGroup 973 1 [sym_kString];
     AGroup 15586 1 [sym_kIf]; AGroup 3 2 syms_5; AGroup 931 2 syms_6; AGroup 935 2 syms_7;
     AGroup 937 2 syms_8; AGroup 939 2 syms_9; AGroup 941 2 syms_10; AGroup 961 2 syms_11;
     SGroup 7570 2 syms_12; SGroup 6915 3 syms_13; SGroup 7485 4 syms_14; AGroup 943 5 syms_15;
     SGroup 7533 14 syms_17]);
   (175139, 20, [AGroup 5 1 [sym_ppDirective]; AGroup 15755 1 [sym_kIf]; AGroup 16629 1 [anon_sym_LBRACK];
     AGroup 16631 1 [anon_sym_LPAREN]; AGroup 16635 1 [anon_sym_POUND];
     AGroup 16649 1 [sym_kSpecialize]; AGroup 16655 1 [sym_kInherited];
     AGroup 18203 1 [sym_kString]; AGroup 3 2 syms_5; AGroup 15747 2 syms_9;
     AGroup 15749 2 syms_10; AGroup 16633 2 syms_6; AGroup 16637 2 syms_7; AGroup 16639 2 syms_8;
     AGroup 16651 2 syms_11; SGroup 9289 2 syms_12; SGroup 7517 3 syms_13;
     SGroup 10280 4 syms_14; AGroup 18298 5 syms_15; SGroup 8878 14 syms_17]);
   (175230, 20, [AGroup 5 1 [sym_ppDirective]; AGroup 16673 1 [anon_sym_LBRACK];
     AGroup 16675 1 [anon_sym_LPAREN]; AGroup 16679 1 [anon_sym_POUND];
     AGroup 16693 1 [sym_kSpecialize]; AGroup 16697 1 [sym_kIf]; AGroup 16699 1 [sym_kInherited];
     AGroup 17272 1 [sym_kString]; AGroup 3 2 syms_5; AGroup 16677 2 syms_6;
     AGroup 16681 2 syms_7; AGroup 16683 2 syms_8; AGroup 16685 2 syms_9; AGroup 16687 2 syms_10;
     AGroup 16695 2 syms_11; SGroup 7694 2 syms_12; SGroup 6650 3 syms_13; SGroup 7946 4 syms_14;
     AGroup 16689 5 syms_15; SGroup 7401 14 syms_17]);
   (175321, 20, [AGroup 5 1 [sym_ppDirective]; AGroup 16629 1 [anon_sym_LBRACK];
     AGroup 16631 1 [anon_sym_LPAREN]; AGroup 16635 1 [anon_sym_POUND];
     AGroup 16649 1 [sym_kSpecialize]; AGroup 16653 1 [sym_kIf]; AGroup 16655 1 [sym_kInherited];
     AGroup 18203 1 [sym_kString]; AGroup 3 2 syms_5; AGroup 16633 2 syms_6;
     AGroup 16637 2 syms_7; AGroup 16639 2 syms_8; AGroup 16641 2 syms_9; AGroup 16643 2 syms_10;
     AGroup 16651 2 syms_11; SGroup 9289 2 syms_12; SGroup 7517 3 syms_13; SGroup 8881 4 syms_14;
     AGroup 16645 5 syms_15; SGroup 8867 14 syms_17]);
   (175412, 20, [AGroup 5 1 [sym_ppDirective]; AGroup 927 1 [anon_sym_LBRACK];
     AGroup 929 1 [anon_sym_LPAREN]; AGroup 933 1 [anon_sym_POUND];
     AGroup 949 1 [sym_kSpecialize]; AGroup 967 1 [sym_kInherited]; AGroup 973 1 [sym_kString];
     AGroup 15755 1 [sym_kIf]; AGroup 3 2 syms_5; AGroup 931 2 syms_6; AGroup 935 2 syms_7;
     AGroup 937 2 syms_8; AGroup 961 2 syms_11; AGroup 15747 2 syms_9; AGroup 15749 2 syms_10;
     SGroup 7570 2 syms_12; SGroup 6915 3 syms_13; SGroup 10272 4 syms_14;
     AGroup 18300 5 syms_15; SGroup 7489 14 syms_17]);
   (175503, 20, [AGroup 5 1 [sym_ppDirective]; AGroup 16673 1 [anon_sym_LBRACK];
     AGroup 16675 1 [anon_sym_LPAREN]; AGroup 16679 1 [anon_sym_POUND];
     AGroup 16693 1 [sym_kSpecialize]; AGroup 16697 1 [sym_kIf]; AGroup 16699 1 [sym_kInherited];
     AGroup 17272 1 [sym_kString]; AGroup 3 2 syms_5; AGroup 16677 2 syms_6;
     AGroup 16681 2 syms_7; AGroup 16683 2 syms_8; AGroup 16685 2 syms_9; AGroup 16687 2 syms_10;
     AGroup 16695 2 syms_11; SGroup 7694 2 syms_12; SGroup 6650 3 syms_13; SGroup 7963 4 syms_14;
     AGroup 16689 5 syms_15; SGroup 7401 14 syms_17]);
   (175594, 20, [AGroup 5 1 [sym_ppDirective]; AGroup 16673 1 [anon_sym_LBRACK];
     AGroup 16675 1 [anon_sym_LPAREN]; AGroup 16679 1 [anon_sym_POUND];
     AGroup 16693 1 [sym_kSpecialize]; AGroup 16697 1 [sym_kIf]; AGroup 16699 1 [sym_kInherited];
     AGroup 17272 1 [sym_kString]; AGroup 3 2 syms_5; AGroup 16677 2 syms_6;
     AGroup 16681 2 syms_7; AGroup 16683 2 syms_8; AGroup 16685 2 syms_9; AGroup 16687 2 syms_10;
     AGroup 16695 2 syms_11; SGroup 7694 2 syms_12; SGroup 6650 3 syms_13; SGroup 7972 4 syms_14;
     AGroup 16689 5 syms_15; SGroup 7401 14 syms_17]);
   (175685, 8, [AGroup 5 1 [sym_ppDirective]; AGroup 3 2 syms_5; SGroup 8622 2 syms_12;
     SGroup 7298 3 syms_13; SGroup 8562 4 syms_14; AGroup 18189 5 syms_150;
     SGroup 8584 14 syms_17; AGroup 18187 19 syms_151]);
   (175752, 20, [AGroup 5 1 [sym_ppDirective]; AGroup 15755 1 [sym_kIf]; AGroup 15987 1 [anon_sym_LBRACK];
     AGroup 15989 1 [anon_sym_LPAREN]; AGroup 15993 1 [anon_sym_POUND];
     AGroup 16007 1 [sym_kSpecialize]; AGroup 16013 1 [sym_kInherited];
     AGroup 18254 1 [sym_kString]; AGroup 3 2 syms_5; AGroup 15747 2 syms_9;
     AGroup 15749 2 syms_10; AGroup 15991 2 syms_6; AGroup 15995 2 syms_7; AGroup 15997 2 syms_8;
     AGroup 16009 2 syms_11; SGroup 9525 2 syms_12; SGroup 7769 3 syms_13;
     SGroup 10256 4 syms_14; AGroup 18302 5 syms_15; SGroup 9346 14 syms_17]);
   (175843, 20, [AGroup 5 1 [sym_ppDirective]; AGroup 15831 1 [anon_sym_LBRACK];
     AGroup 15833 1 [anon_sym_LPAREN]; AGroup 15837 1 [anon_sym_POUND];
     AGroup 15851 1 [sym_kSpecialize]; AGroup 15855 1 [sym_kIf]; AGroup 15857 1 [sym_kInherited];
     AGroup 17312 1 [sym_kString]; AGroup 3 2 syms_5; AGroup 15835 2 syms_6;
     AGroup 15839 2 syms_7; AGroup 15841 2 syms_8; AGroup 15843 2 syms_9; AGroup 15845 2 syms_10;
     AGroup 15853 2 syms_11; SGroup 9267 2 syms_12; SGroup 7556 3 syms_13; SGroup 9643 4 syms_14;
     AGroup 15847 5 syms_15; SGroup 8649 14 syms_17])
  ].

(** States 4659 to 4758. *)
Definition small_runs_4659 : list small_run :=
  [
   (175934, 20, [AGroup 5 1 [sym_ppDirective]; AGroup 15831 1 [anon_sym_LBRACK];
     AGroup 15833 1 [anon_sym_LPAREN]; AGroup 15837 1 [anon_sym_POUND];
     AGroup 15851 1 [sym_kSpecialize]; AGroup 15855 1 [sym_kIf]; AGroup 15857 1 [sym_kInherited];
     AGroup 17312 1 [sym_kString]; AGroup 3 2 syms_5; AGroup 15835 2 syms_6;
     AGroup 15839 2 syms_7; AGroup 15841 2 syms_8; AGroup 15843 2 syms_9; AGroup 15845 2 syms_10;
     AGroup 15853 2 syms_11; SGroup 9267 2 syms_12; SGroup 7556 3 syms_13; SGroup 9624 4 syms_14;
     AGroup 15847 5 syms_15; SGroup 8649 14 syms_17]);
   (176025, 20, [AGroup 5 1 [sym_ppDirective]; AGroup 15831 1 [anon_sym_LBRACK];
     AGroup 15833 1 [anon_sym_LPAREN]; AGroup 15837 1 [anon_sym_POUND];
     AGroup 15851 1 [sym_kSpecialize]; AGroup 15855 1 [sym_kIf]; AGroup 15857 1 [sym_kInherited];
     AGroup 17312 1 [sym_kString]; AGroup 3 2 syms_5; AGroup 15835 2 syms_6;
     AGroup 15839 2 syms_7; AGroup 15841 2 syms_8; AGroup 15843 2 syms_9; AGroup 15845 2 syms_10;
     AGroup 15853 2 syms_11; SGroup 9267 2 syms_12; SGroup 7556 3 syms_13; SGroup 9708 4 syms_14;
     AGroup 15847 5 syms_15; SGroup 8649 14 syms_17]);
   (176116, 8, [AGroup 5 1 [sym_ppDirective]; AGroup 3 2 syms_5; SGroup 7084 2 syms_12;
     SGroup 6066 3 syms_13; SGroup 7020 4 syms_14; AGroup 18189 5 syms_150;
     SGroup 7013 14 syms_17; AGroup 18187 19 syms_151]);
   (176183, 20, [AGroup 5 1 [sym_ppDirective]; AGroup 16715 1 [anon_sym_LBRACK];
     AGroup 16717 1 [anon_sym_LPAREN]; AGroup 16721 1 [anon_sym_POUND];
     AGroup 16735 1 [sym_kSpecialize]; AGroup 16739 1 [sym_kIf]; AGroup 16741 1 [sym_kInherited];
     AGroup 18201 1 [sym_kString]; AGroup 3 2 syms_5; AGroup 16719 2 syms_6;
     AGroup 16723 2 syms_7; AGroup 16725 2 syms_8; AGroup 16727 2 syms_9; AGroup 16729 2 syms_10;
     AGroup 16737 2 syms_11; SGroup 7901 2 syms_12; SGroup 7014 3 syms_13; SGroup 8497 4 syms_14;
     AGroup 16731 5 syms_15; SGroup 7757 14 syms_17]);
   (176274, 20, [AGroup 5 1 [sym_ppDirective]; AGroup 16629 1 [anon_sym_LBRACK];
     AGroup 16631 1 [anon_sym_LPAREN]; AGroup 16635 1 [anon_sym_POUND];
     AGroup 16649 1 [sym_kSpecialize]; AGroup 16653 1 [sym_kIf]; AGroup 16655 1 [sym_kInherited];
     AGroup 18203 1 [sym_kString]; AGroup 3 2 syms_5; AGroup 16633 2 syms_6;
     AGroup 16637 2 syms_7; AGroup 16639 2 syms_8; AGroup 16641 2 syms_9; AGroup 16643 2 syms_10;
     AGroup 16651 2 syms_11; SGroup 9289 2 syms_12; SGroup 7517 3 syms_13; SGroup 8882 4 syms_14;
     AGroup 16645 5 syms_15; SGroup 8867 14 syms_17]);
   (176365, 20, [AGroup 5 1 [sym_ppDirective]; AGroup 15831 1 [anon_sym_LBRACK];
     AGroup 15833 1 [anon_sym_LPAREN]; AGroup 15837 1 [anon_sym_POUND];
     AGroup 15851 1 [sym_kSpecialize]; AGroup 15855 1 [sym_kIf]; AGroup 15857 1 [sym_kInherited];
     AGroup 17312 1 [sym_kString]; AGroup 3 2 syms_5; AGroup 15835 2 syms_6;
     AGroup 15839 2 syms_7; AGroup 15841 2 syms_8; AGroup 15843 2 syms_9; AGroup 15845 2 syms_10;
     AGroup 15853 2 syms_11; SGroup 9267 2 syms_12; SGroup 7556 3 syms_13; SGroup 9781 4 syms_14;
     AGroup 15847 5 syms_15; SGroup 8649 14 syms_17]);
   (176456, 20, [AGroup 5 1 [sym_ppDirective]; AGroup 15831 1 [anon_sym_LBRACK];
     AGroup 15833 1 [anon_sym_LPAREN]; AGroup 15837 1 [anon_sym_POUND];
     AGroup 15851 1 [sym_kSpecialize]; AGroup 15855 1 [sym_kIf]; AGroup 15857 1 [sym_kInherited];
     AGroup 17312 1 [sym_kString]; AGroup 3 2 syms_5; AGroup 15835 2 syms_6;
     AGroup 15839 2 syms_7; AGroup 15841 2 syms_8; AGroup 15843 2 syms_9; AGroup 15845 2 syms_10;
     AGroup 15853 2 syms_11; SGroup 9267 2 syms_12; SGroup 7556 3 syms_13; SGroup 9638 4 syms_14;
     AGroup 15847 5 syms_15; SGroup 8649 14 syms_17]);
   (176547, 20, [AGroup 5 1 [sym_ppDirective]; AGroup 15831 1 [anon_sym_LBRACK];
     AGroup 15833 1 [anon_sym_LPAREN]; AGroup 15837 1 [anon_sym_POUND];
     AGroup 15851 1 [sym_kSpecialize]; AGroup 15855 1 [sym_kIf]; AGroup 15857 1 [sym_kInherited];
     AGroup 17312 1 [sym_kString]; AGroup 3 2 syms_5; AGroup 15835 2 syms_6;
     AGroup 15839 2 syms_7; AGroup 15841 2 syms_8; AGroup 15843 2 syms_9; AGroup 15845 2 syms_10;
     AGroup 15853 2 syms_11; SGroup 9267 2 syms_12; SGroup 7556 3 syms_13; SGroup 9646 4 syms_14;
     AGroup 15847 5 syms_15; SGroup 8649 14 syms_17]);
   (176638, 8, [AGroup 5 1 [sym_ppDirective]; AGroup 3 2 syms_5; SGroup 9267 2 syms_12;
     SGroup 7556 3 syms_13; SGroup 8835 4 syms_14; AGroup 18189 5 syms_150;
     SGroup 8649 14 syms_17; AGroup 18187 19 syms_151]);
   (176705, 20, [AGroup 5 1 [sym_ppDirective]; AGroup 15831 1 [anon_sym_LBRACK];
     AGroup 15833 1 [anon_sym_LPAREN]; AGroup 15837 1 [anon_sym_POUND];
     AGroup 15851 1 [sym_kSpecialize]; AGroup 15855 1 [sym_kIf]; AGroup 15857 1 [sym_kInherited];
     AGroup 17312 1 [sym_kString]; AGroup 3 2 syms_5; AGroup 15835 2 syms_6;
     AGroup 15839 2 syms_7; AGroup 15841 2 syms_8; AGroup 15843 2 syms_9; AGroup 15845 2 syms_10;
     AGroup 15853 2 syms_11; SGroup 9267 2 syms_12; SGroup 7556 3 syms_13; SGroup 9672 4 syms_14;
     AGroup 15847 5 syms_15; SGroup 8649 14 syms_17]);
   (176796, 4, [AGroup 5 1 [sym_ppDirective]; AGroup 3 2 syms_5; AGroup 15295 4 syms_25;
     AGroup 15293 43 syms_160]);
   (176855, 20, [AGroup 5 1 [sym_ppDirective]; AGroup 16715 1 [anon_sym_LBRACK];
     AGroup 16717 1 [anon_sym_LPAREN]; AGroup 16721 1 [anon_sym_POUND];
     AGroup 16735 1 [sym_kSpecialize]; AGroup 16739 1 [sym_kIf]; AGroup 16741 1 [sym_kInherited];
     AGroup 18201 1 [sym_kString]; AGroup 3 2 syms_5; AGroup 16719 2 syms_6;
     AGroup 16723 2 syms_7; AGroup 16725 2 syms_8; AGroup 16727 2 syms_9; AGroup 16729 2 syms_10;
     AGroup 16737 2 syms_11; SGroup 7901 2 syms_12; SGroup 7014 3 syms_13; SGroup 7754 4 syms_14;
     AGroup 16731 5 syms_15; SGroup 7757 14 syms_17]);
   (176946, 20, [AGroup 5 1 [sym_ppDirective]; AGroup 15831 1 [anon_sym_LBRACK];
     AGroup 15833 1 [anon_sym_LPAREN]; AGroup 15837 1 [anon_sym_POUND];
     AGroup 15851 1 [sym_kSpecialize]; AGroup 15855 1 [sym_kIf]; AGroup 15857 1 [sym_kInherited];
     AGroup 17312 1 [sym_kString]; AGroup 3 2 syms_5; AGroup 15835 2 syms_6;
     AGroup 15839 2 syms_7; AGroup 15841 2 syms_8; AGroup 15843 2 syms_9; AGroup 15845 2 syms_10;
     AGroup 15853 2 syms_11; SGroup 9267 2 syms_12; SGroup 7556 3 syms_13; SGroup 9722 4 syms_14;
     AGroup 15847 5 syms_15; SGroup 8649 14 syms_17]);
   (177037, 20, [AGroup 5 1 [sym_ppDirective]; AGroup 15831 1 [anon_sym_LBRACK];
     AGroup 15833 1 [anon_sym_LPAREN]; AGroup 15837 1 [anon_sym_POUND];
     AGroup 15851 1 [sym_kSpecialize]; AGroup 15855 1 [sym_kIf]; AGroup 15857 1 [sym_kInherited];
     AGroup 17312 1 [sym_kString]; AGroup 3 2 syms_5; AGroup 15835 2 syms_6;
     AGroup 15839 2 syms_7; AGroup 15841 2 syms_8; AGroup 15843 2 syms_9; AGroup 15845 2 syms_10;
     AGroup 15853 2 syms_11; SGroup 9267 2 syms_12; SGroup 7556 3 syms_13; SGroup 9731 4 syms_14;
     AGroup 15847 5 syms_15; SGroup 8649 14 syms_17]);
   (177128, 8, [AGroup 5 1 [sym_ppDirective]; AGroup 3 2 syms_5; SGroup 7660 2 syms_12;
     SGroup 6967 3 syms_13; SGroup 7450 4 syms_14; AGroup 18189 5 syms_150;
     SGroup 7363 14 syms_17; AGroup 18187 19 syms_151]);
   (177195, 4, [AGroup 5 1 [sym_ppDirective]; AGroup 3 2 syms_5; AGroup 15355 4 syms_25;
     AGroup 15353 43 syms_160]);
   (177254, 20, [AGroup 5 1 [sym_ppDirective]; AGroup 16715 1 [anon_sym_LBRACK];
     AGroup 16717 1 [anon_sym_LPAREN]; AGroup 16721 1 [anon_sym_POUND];
     AGroup 16735 1 [sym_kSpecialize]; AGroup 16739 1 [sym_kIf]; AGroup 16741 1 [sym_kInherited];
     AGroup 18201 1 [sym_kString]; AGroup 3 2 syms_5; AGroup 16719 2 syms_6;
     AGroup 16723 2 syms_7; AGroup 16725 2 syms_8; AGroup 16727 2 syms_9; AGroup 16729 2 syms_10;
     AGroup 16737 2 syms_11; SGroup 7901 2 syms_12; SGroup 7014 3 syms_13; SGroup 7759 4 syms_14;
     AGroup 16731 5 syms_15; SGroup 7757 14 syms_17]);
   (177345, 20, [AGroup 5 1 [sym_ppDirective]; AGroup 16715 1 [anon_sym_LBRACK];
     AGroup 16717 1 [anon_sym_LPAREN]; AGroup 16721 1 [anon_sym_POUND];
     AGroup 16735 1 [sym_kSpecialize]; AGroup 16739 1 [sym_kIf]; AGroup 16741 1 [sym_kInherited];
     AGroup 18201 1 [sym_kString]; AGroup 3 2 syms_5; AGroup 16719 2 syms_6;
     AGroup 16723 2 syms_7; AGroup 16725 2 syms_8; AGroup 16727 2 syms_9; AGroup 16729 2 syms_10;
     AGroup 16737 2 syms_11; SGroup 7901 2 syms_12; SGroup 7014 3 syms_13; SGroup 7760 4 syms_14;
     AGroup 16731 5 syms_15; SGroup 7757 14 syms_17]);
   (177436, 20, [AGroup 5 1 [sym_ppDirective]; AGroup 16715 1 [anon_sym_LBRACK];
     AGroup 16717 1 [anon_sym_LPAREN]; AGroup 16721 1 [anon_sym_POUND];
     AGroup 16735 1 [sym_kSpecialize]; AGroup 16739 1 [sym_kIf]; AGroup 16741 1 [sym_kInherited];
     AGroup 18201 1 [sym_kString]; AGroup 3 2 syms_5; AGroup 16719 2 syms_6;
     AGroup 16723 2 syms_7; AGroup 16725 2 syms_8; AGroup 16727 2 syms_9; AGroup 16729 2 syms_10;
     AGroup 16737 2 syms_11; SGroup 7901 2 syms_12; SGroup 7014 3 syms_13; SGroup 7761 4 syms_14;
     AGroup 16731 5 syms_15; SGroup 7757 14 syms_17]);
   (177527, 21, [AGroup 5 1 [sym_ppDirective]; AGroup 16715 1 [anon_sym_LBRACK];
     AGroup 16717 1 [anon_sym_LPAREN]; AGroup 16721 1 [anon_sym_POUND]; AGroup 16729 1 [sym_kAt];
     AGroup 16735 1 [sym_kSpecialize]; AGroup 16739 1 [sym_kIf]; AGroup 16741 1 [sym_kInherited];
     AGroup 18201 1 [sym_kString]; AGroup 18304 1 [sym_kNot]; AGroup 3 2 syms_5;
     AGroup 16719 2 syms_6; AGroup 16723 2 syms_7; AGroup 16725 2 syms_8; AGroup 16727 2 syms_9;
     AGroup 16737 2 syms_11; SGroup 7901 2 syms_12; SGroup 7014 3 syms_13; SGroup 7761 4 syms_14;
     AGroup 16731 5 syms_15; SGroup 7757 14 syms_17]);
   (177620, 20, [AGroup 5 1 [sym_ppDirective]; AGroup 16715 1 [anon_sym_LBRACK];
     AGroup 16717 1 [anon_sym_LPAREN]; AGroup 16721 1 [anon_sym_POUND];
     AGroup 16735 1 [sym_kSpecialize]; AGroup 16739 1 [sym_kIf]; AGroup 16741 1 [sym_kInherited];
     AGroup 18201 1 [sym_kString]; AGroup 3 2 syms_5; AGroup 16719 2 syms_6;
     AGroup 16723 2 syms_7; AGroup 16725 2 syms_8; AGroup 16727 2 syms_9; AGroup 16729 2 syms_10;
     AGroup 16737 2 syms_11; SGroup 7901 2 syms_12; SGroup 7014 3 syms_13; SGroup 7762 4 syms_14;
     AGroup 16731 5 syms_15; SGroup 7757 14 syms_17]);
   (177711, 20, [AGroup 5 1 [sym_ppDirective]; AGroup 15831 1 [anon_sym_LBRACK];
     AGroup 15833 1 [anon_sym_LPAREN]; AGroup 15837 1 [anon_sym_POUND];
     AGroup 15851 1 [sym_kSpecialize]; AGroup 15855 1 [sym_kIf]; AGroup 15857 1 [sym_kInherited];
     AGroup 17312 1 [sym_kString]; AGroup 3 2 syms_5; AGroup 15835 2 syms_6;
     AGroup 15839 2 syms_7; AGroup 15841 2 syms_8; AGroup 15843 2 syms_9; AGroup 15845 2 syms_10;
     AGroup 15853 2 syms_11; SGroup 9267 2 syms_12; SGroup 7556 3 syms_13; SGroup 9678 4 syms_14;
     AGroup 15847 5 syms_15; SGroup 8649 14 syms_17]);
   (177802, 20, [AGroup 5 1 [sym_ppDirective]; AGroup 15755 1 [sym_kIf]; AGroup 16715 1 [anon_sym_LBRACK];
     AGroup 16717 1 [anon_sym_LPAREN]; AGroup 16721 1 [anon_sym_POUND];
     AGroup 16735 1 [sym_kSpecialize]; AGroup 16741 1 [sym_kInherited];
     AGroup 18201 1 [sym_kString]; AGroup 3 2 syms_5; AGroup 15747 2 syms_9;
     AGroup 15749 2 syms_10; AGroup 16719 2 syms_6; AGroup 16723 2 syms_7; AGroup 16725 2 syms_8;
     AGroup 16737 2 syms_11; SGroup 7901 2 syms_12; SGroup 7014 3 syms_13;
     SGroup 10270 4 syms_14; AGroup 18306 5 syms_15; SGroup 7763 14 syms_17]);
   (177893, 20, [AGroup 5 1 [sym_ppDirective]; AGroup 15831 1 [anon_sym_LBRACK];
     AGroup 15833 1 [anon_sym_LPAREN]; AGroup 15837 1 [anon_sym_POUND];
     AGroup 15851 1 [sym_kSpecialize]; AGroup 15855 1 [sym_kIf]; AGroup 15857 1 [sym_kInherited];
     AGroup 17312 1 [sym_kString]; AGroup 3 2 syms_5; AGroup 15835 2 syms_6;
     AGroup 15839 2 syms_7; AGroup 15841 2 syms_8; AGroup 15843 2 syms_9; AGroup 15845 2 syms_10;
     AGroup 15853 2 syms_11; SGroup 9267 2 syms_12; SGroup 7556 3 syms_13; SGroup 9633 4 syms_14;
     AGroup 15847 5 syms_15; SGroup 8649 14 syms_17]);
   (177984, 20, [AGroup 5 1 [sym_ppDirective]; AGroup 15831 1 [anon_sym_LBRACK];
     AGroup 15833 1 [anon_sym_LPAREN]; AGroup 15837 1 [anon_sym_POUND];
     AGroup 15851 1 [sym_kSpecialize]; AGroup 15855 1 [sym_kIf]; AGroup 15857 1 [sym_kInherited];
     AGroup 17312 1 [sym_kString]; AGroup 3 2 syms_5; AGroup 15835 2 syms_6;
     AGroup 15839 2 syms_7; AGroup 15841 2 syms_8; AGroup 15843 2 syms_9; AGroup 15845 2 syms_10;
     AGroup 15853 2 syms_11; SGroup 9267 2 syms_12; SGroup 7556 3 syms_13; SGroup 9634 4 syms_14;
     AGroup 15847 5 syms_15; SGroup 8649 14 syms_17]);
   (178075, 8, [AGroup 5 1 [sym_ppDirective]; AGroup 3 2 syms_5; SGroup 7132 2 syms_12;
     SGroup 6248 3 syms_13; SGroup 7076 4 syms_14; AGroup 18189 5 syms_150;
     SGroup 7054 14 syms_17; AGroup 18187 19 syms_151]);
   (178142, 20, [AGroup 5 1 [sym_ppDirective]; AGroup 15925 1 [anon_sym_LBRACK];
     AGroup 15927 1 [anon_sym_LPAREN]; AGroup 15931 1 [anon_sym_POUND];
     AGroup 15945 1 [sym_kSpecialize]; AGroup 15949 1 [sym_kIf]; AGroup 15951 1 [sym_kInherited];
     AGroup 17248 1 [sym_kString]; AGroup 3 2 syms_5; AGroup 15929 2 syms_6;
     AGroup 15933 2 syms_7; AGroup 15935 2 syms_8; AGroup 15937 2 syms_9; AGroup 15939 2 syms_10;
     AGroup 15947 2 syms_11; SGroup 9150 2 syms_12; SGroup 7490 3 syms_13; SGroup 9673 4 syms_14;
     AGroup 15941 5 syms_15; SGroup 8764 14 syms_17]);
   (178233, 20, [AGroup 5 1 [sym_ppDirective]; AGroup 927 1 [anon_sym_LBRACK];
     AGroup 929 1 [anon_sym_LPAREN]; AGroup 933 1 [anon_sym_POUND];
     AGroup 949 1 [sym_kSpecialize]; AGroup 967 1 [sym_kInherited]; AGroup 973 1 [sym_kString];
     AGroup 15586 1 [sym_kIf]; AGroup 3 2 syms_5; AGroup 931 2 syms_6; AGroup 935 2 syms_7;
     AGroup 937 2 syms_8; AGroup 939 2 syms_9; AGroup 941 2 syms_10; AGroup 961 2 syms_11;
     SGroup 7570 2 syms_12; SGroup 6915 3 syms_13; SGroup 7505 4 syms_14; AGroup 943 5 syms_15;
     SGroup 7533 14 syms_17]);
   (178324, 20, [AGroup 5 1 [sym_ppDirective]; AGroup 16715 1 [anon_sym_LBRACK];
     AGroup 16717 1 [anon_sym_LPAREN]; AGroup 16721 1 [anon_sym_POUND];
     AGroup 16735 1 [sym_kSpecialize]; AGroup 16739 1 [sym_kIf]; AGroup 16741 1 [sym_kInherited];
     AGroup 18201 1 [sym_kString]; AGroup 3 2 syms_5; AGroup 16719 2 syms_6;
     AGroup 16723 2 syms_7; AGroup 16725 2 syms_8; AGroup 16727 2 syms_9; AGroup 16729 2 syms_10;
     AGroup 16737 2 syms_11; SGroup 7901 2 syms_12; SGroup 7014 3 syms_13; SGroup 7766 4 syms_14;
     AGroup 16731 5 syms_15; SGroup 7757 14 syms_17]);
   (178415, 20, [AGroup 5 1 [sym_ppDirective]; AGroup 15925 1 [anon_sym_LBRACK];
     AGroup 15927 1 [anon_sym_LPAREN]; AGroup 15931 1 [anon_sym_POUND];
     AGroup 15945 1 [sym_kSpecialize]; AGroup 15949 1 [sym_kIf]; AGroup 15951 1 [sym_kInherited];
     AGroup 17248 1 [sym_kString]; AGroup 3 2 syms_5; AGroup 15929 2 syms_6;
     AGroup 15933 2 syms_7; AGroup 15935 2 syms_8; AGroup 15937 2 syms_9; AGroup 15939 2 syms_10;
     AGroup 15947 2 syms_11; SGroup 9150 2 syms_12; SGroup 7490 3 syms_13; SGroup 9674 4 syms_14;
     AGroup 15941 5 syms_15; SGroup 8764 14 syms_17]);
   (178506, 20, [AGroup 5 1 [sym_ppDirective]; AGroup 15831 1 [anon_sym_LBRACK];
     AGroup 15833 1 [anon_sym_LPAREN]; AGroup 15837 1 [anon_sym_POUND];
     AGroup 15851 1 [sym_kSpecialize]; AGroup 15855 1 [sym_kIf]; AGroup 15857 1 [sym_kInherited];
     AGroup 17312 1 [sym_kString]; AGroup 3 2 syms_5; AGroup 15835 2 syms_6;
     AGroup 15839 2 syms_7; AGroup 15841 2 syms_8; AGroup 15843 2 syms_9; AGroup 15845 2 syms_10;
     AGroup 15853 2 syms_11; SGroup 9267 2 syms_12; SGroup 7556 3 syms_13; SGroup 9775 4 syms_14;
     AGroup 15847 5 syms_15; SGroup 8649 14 syms_17]);
   (178597, 20, [AGroup 5 1 [sym_ppDirective]; AGroup 15831 1 [anon_sym_LBRACK];
     AGroup 15833 1 [anon_sym_LPAREN]; AGroup 15837 1 [anon_sym_POUND];
     AGroup 15851 1 [sym_kSpecialize]; AGroup 15855 1 [sym_kIf]; AGroup 15857 1 [sym_kInherited];
     AGroup 17312 1 [sym_kString]; AGroup 3 2 syms_5; AGroup 15835 2 syms_6;
     AGroup 15839 2 syms_7; AGroup 15841 2 syms_8; AGroup 15843 2 syms_9; AGroup 15845 2 syms_10;
     AGroup 15853 2 syms_11; SGroup 9267 2 syms_12; SGroup 7556 3 syms_13; SGroup 9757 4 syms_14;
     AGroup 15847 5 syms_15; SGroup 8649 14 syms_17]);
   (178688, 20, [AGroup 5 1 [sym_ppDirective]; AGroup 15831 1 [anon_sym_LBRACK];
     AGroup 15833 1 [anon_sym_LPAREN]; AGroup 15837 1 [anon_sym_POUND];
     AGroup 15851 1 [sym_kSpecialize]; AGroup 15855 1 [sym_kIf]; AGroup 15857 1 [sym_kInherited];
     AGroup 17312 1 [sym_kString]; AGroup 3 2 syms_5; AGroup 15835 2 syms_6;
     AGroup 15839 2 syms_7; AGroup 15841 2 syms_8; AGroup 15843 2 syms_9; AGroup 15845 2 syms_10;
     AGroup 15853 2 syms_11; SGroup 9267 2 syms_12; SGroup 7556 3 syms_13; SGroup 9718 4 syms_14;
     AGroup 15847 5 syms_15; SGroup 8649 14 syms_17]);
   (178779, 8, [AGroup 5 1 [sym_ppDirective]; AGroup 3 2 syms_5; SGroup 8792 2 syms_12;
     SGroup 7321 3 syms_13; SGroup 8452 4 syms_14; AGroup 18189 5 syms_150;
     SGroup 8443 14 syms_17; AGroup 18187 19 syms_151]);
   (178846, 20, [AGroup 5 1 [sym_ppDirective]; AGroup 16101 1 [anon_sym_LBRACK];
     AGroup 16103 1 [anon_sym_LPAREN]; AGroup 16107 1 [anon_sym_POUND];
     AGroup 16121 1 [sym_kSpecialize]; AGroup 16125 1 [sym_kIf]; AGroup 16127 1 [sym_kInherited];
     AGroup 17012 1 [sym_kString]; AGroup 3 2 syms_5; AGroup 16105 2 syms_6;
     AGroup 16109 2 syms_7; AGroup 16111 2 syms_8; AGroup 16113 2 syms_9; AGroup 16115 2 syms_10;
     AGroup 16123 2 syms_11; SGroup 8060 2 syms_12; SGroup 7068 3 syms_13; SGroup 7854 4 syms_14;
     AGroup 16117 5 syms_15; SGroup 7822 14 syms_17]);
   (178937, 20, [AGroup 5 1 [sym_ppDirective]; AGroup 15987 1 [anon_sym_LBRACK];
     AGroup 15989 1 [anon_sym_LPAREN]; AGroup 15993 1 [anon_sym_POUND];
     AGroup 16007 1 [sym_kSpecialize]; AGroup 16011 1 [sym_kIf]; AGroup 16013 1 [sym_kInherited];
     AGroup 18254 1 [sym_kString]; AGroup 3 2 syms_5; AGroup 15991 2 syms_6;
     AGroup 15995 2 syms_7; AGroup 15997 2 syms_8; AGroup 15999 2 syms_9; AGroup 16001 2 syms_10;
     AGroup 16009 2 syms_11; SGroup 9525 2 syms_12; SGroup 7769 3 syms_13; SGroup 9162 4 syms_14;
     AGroup 16003 5 syms_15; SGroup 9072 14 syms_17]);
   (179028, 8, [AGroup 5 1 [sym_ppDirective]; AGroup 3 2 syms_5; SGroup 7299 2 syms_12;
     SGroup 6388 3 syms_13; SGroup 7133 4 syms_14; AGroup 18189 5 syms_150;
     SGroup 7138 14 syms_17; AGroup 18187 19 syms_151]);
   (179095, 8, [AGroup 5 1 [sym_ppDirective]; AGroup 3 2 syms_5; SGroup 5943 2 syms_12;
     SGroup 3840 3 syms_13; SGroup 5827 4 syms_14; AGroup 18189 5 syms_150;
     SGroup 5828 14 syms_17; AGroup 18187 19 syms_151]);
   (179162, 20, [AGroup 5 1 [sym_ppDirective]; AGroup 16715 1 [anon_sym_LBRACK];
     AGroup 16717 1 [anon_sym_LPAREN]; AGroup 16721 1 [anon_sym_POUND];
     AGroup 16735 1 [sym_kSpecialize]; AGroup 16739 1 [sym_kIf]; AGroup 16741 1 [sym_kInherited];
     AGroup 18201 1 [sym_kString]; AGroup 3 2 syms_5; AGroup 16719 2 syms_6;
     AGroup 16723 2 syms_7; AGroup 16725 2 syms_8; AGroup 16727 2 syms_9; AGroup 16729 2 syms_10;
     AGroup 16737 2 syms_11; SGroup 7901 2 syms_12; SGroup 7014 3 syms_13; SGroup 7767 4 syms_14;
     AGroup 16731 5 syms_15; SGroup 7757 14 syms_17]);
   (179253, 8, [AGroup 5 1 [sym_ppDirective]; AGroup 3 2 syms_5; SGroup 8314 2 syms_12;
     SGroup 7161 3 syms_13; SGroup 7951 4 syms_14; AGroup 18189 5 syms_150;
     SGroup 8003 14 syms_17; AGroup 18187 19 syms_151]);
   (179320, 8, [AGroup 5 1 [sym_ppDirective]; AGroup 3 2 syms_5; SGroup 7474 2 syms_12;
     SGroup 6591 3 syms_13; SGroup 7322 4 syms_14; AGroup 18189 5 syms_150;
     SGroup 7326 14 syms_17; AGroup 18187 19 syms_151]);
   (179387, 8, [AGroup 5 1 [sym_ppDirective]; AGroup 3 2 syms_5; SGroup 7250 2 syms_12;
     SGroup 6416 3 syms_13; SGroup 7149 4 syms_14; AGroup 18189 5 syms_150;
     SGroup 7153 14 syms_17; AGroup 18187 19 syms_151]);
   (179454, 20, [AGroup 5 1 [sym_ppDirective]; AGroup 47 1 [anon_sym_LPAREN]; AGroup 51 1 [anon_sym_POUND];
     AGroup 73 1 [sym_kSpecialize]; AGroup 105 1 [sym_kInherited]; AGroup 117 1 [sym_kString];
     AGroup 11060 1 [anon_sym_LBRACK]; AGroup 15829 1 [sym_kIf]; AGroup 3 2 syms_5;
     AGroup 49 2 syms_6; AGroup 53 2 syms_7; AGroup 55 2 syms_8; AGroup 61 2 syms_9;
     AGroup 63 2 syms_10; AGroup 11080 2 syms_11; SGroup 7888 2 syms_12; SGroup 6994 3 syms_13;
     SGroup 7624 4 syms_14; AGroup 65 5 syms_15; SGroup 7765 14 syms_17]);
   (179545, 8, [AGroup 5 1 [sym_ppDirective]; AGroup 3 2 syms_5; SGroup 9151 2 syms_12;
     SGroup 7393 3 syms_13; SGroup 8674 4 syms_14; AGroup 18189 5 syms_150;
     SGroup 8705 14 syms_17; AGroup 18187 19 syms_151]);
   (179612, 8, [AGroup 5 1 [sym_ppDirective]; AGroup 3 2 syms_5; SGroup 7734 2 syms_12;
     SGroup 6950 3 syms_13; SGroup 7355 4 syms_14; AGroup 18189 5 syms_150;
     SGroup 7373 14 syms_17; AGroup 18187 19 syms_151]);
   (179679, 8, [AGroup 5 1 [sym_ppDirective]; AGroup 3 2 syms_5; SGroup 8930 2 syms_12;
     SGroup 7257 3 syms_13; SGroup 8458 4 syms_14; AGroup 18189 5 syms_150;
     SGroup 8310 14 syms_17; AGroup 18187 19 syms_151]);
   (179746, 20, [AGroup 5 1 [sym_ppDirective]; AGroup 9634 1 [anon_sym_LBRACK];
     AGroup 9636 1 [anon_sym_LPAREN]; AGroup 9640 1 [anon_sym_POUND];
     AGroup 9656 1 [sym_kSpecialize]; AGroup 9674 1 [sym_kInherited];
     AGroup 9680 1 [sym_kString]; AGroup 15506 1 [sym_kIf]; AGroup 3 2 syms_5;
     AGroup 9638 2 syms_6; AGroup 9642 2 syms_7; AGroup 9644 2 syms_8; AGroup 9646 2 syms_9;
     AGroup 9648 2 syms_10; AGroup 9668 2 syms_11; SGroup 7552 2 syms_12; SGroup 6534 3 syms_13;
     SGroup 7336 4 syms_14; AGroup 9650 5 syms_15; SGroup 7341 14 syms_17]);
   (179837, 8, [AGroup 5 1 [sym_ppDirective]; AGroup 3 2 syms_5; SGroup 8060 2 syms_12;
     SGroup 7068 3 syms_13; SGroup 7809 4 syms_14; AGroup 18189 5 syms_150;
     SGroup 7822 14 syms_17; AGroup 18187 19 syms_151]);
   (179904, 20, [AGroup 5 1 [sym_ppDirective]; AGroup 9634 1 [anon_sym_LBRACK];
     AGroup 9636 1 [anon_sym_LPAREN]; AGroup 9640 1 [anon_sym_POUND];
     AGroup 9656 1 [sym_kSpecialize]; AGroup 9674 1 [sym_kInherited];
     AGroup 9680 1 [sym_kString]; AGroup 15506 1 [sym_kIf]; AGroup 3 2 syms_5;
     AGroup 9638 2 syms_6; AGroup 9642 2 syms_7; AGroup 9644 2 syms_8; AGroup 9646 2 syms_9;
     AGroup 9648 2 syms_10; AGroup 9668 2 syms_11; SGroup 7552 2 syms_12; SGroup 6534 3 syms_13;
     SGroup 7343 4 syms_14; AGroup 9650 5 syms_15; SGroup 7341 14 syms_17]);
   (179995, 8, [AGroup 5 1 [sym_ppDirective]; AGroup 3 2 syms_5; SGroup 8630 2 syms_12;
     SGroup 7260 3 syms_13; SGroup 8176 4 syms_14; AGroup 18189 5 syms_150;
     SGroup 8446 14 syms_17; AGroup 18187 19 syms_151]);
   (180062, 20, [AGroup 5 1 [sym_ppDirective]; AGroup 9634 1 [anon_sym_LBRACK];
     AGroup 9636 1 [anon_sym_LPAREN]; AGroup 9640 1 [anon_sym_POUND];
     AGroup 9656 1 [sym_kSpecialize]; AGroup 9674 1 [sym_kInherited];
     AGroup 9680 1 [sym_kString]; AGroup 15506 1 [sym_kIf]; AGroup 3 2 syms_5;
     AGroup 9638 2 syms_6; AGroup 9642 2 syms_7; AGroup 9644 2 syms_8; AGroup 9646 2 syms_9;
     AGroup 9648 2 syms_10; AGroup 9668 2 syms_11; SGroup 7552 2 syms_12; SGroup 6534 3 syms_13;
     SGroup 7344 4 syms_14; AGroup 9650 5 syms_15; SGroup 7341 14 syms_17]);
   (180153, 20, [AGroup 5 1 [sym_ppDirective]; AGroup 9634 1 [anon_sym_LBRACK];
     AGroup 9636 1 [anon_sym_LPAREN]; AGroup 9640 1 [anon_sym_POUND];
     AGroup 9656 1 [sym_kSpecialize]; AGroup 9674 1 [sym_kInherited];
     AGroup 9680 1 [sym_kString]; AGroup 15506 1 [sym_kIf]; AGroup 3 2 syms_5;
     AGroup 9638 2 syms_6; AGroup 9642 2 syms_7; AGroup 9644 2 syms_8; AGroup 9646 2 syms_9;
     AGroup 9648 2 syms_10; AGroup 9668 2 syms_11; SGroup 7552 2 syms_12; SGroup 6534 3 syms_13;
     SGroup 7345 4 syms_14; AGroup 9650 5 syms_15; SGroup 7341 14 syms_17]);
   (180244, 21, [AGroup 5 1 [sym_ppDirective]; AGroup 9634 1 [anon_sym_LBRACK];
     AGroup 9636 1 [anon_sym_LPAREN]; AGroup 9640 1 [anon_sym_POUND]; AGroup 9648 1 [sym_kAt];
     AGroup 9656 1 [sym_kSpecialize]; AGroup 9674 1 [sym_kInherited];
     AGroup 9680 1 [sym_kString]; AGroup 15506 1 [sym_kIf]; AGroup 18308 1 [sym_kNot];
     AGroup 3 2 syms_5; AGroup 9638 2 syms_6; AGroup 9642 2 syms_7; AGroup 9644 2 syms_8;
     AGroup 9646 2 syms_9; AGroup 9668 2 syms_11; SGroup 7552 2 syms_12; SGroup 6534 3 syms_13;
     SGroup 7345 4 syms_14; AGroup 9650 5 syms_15; SGroup 7341 14 syms_17]);
   (180337, 20, [AGroup 5 1 [sym_ppDirective]; AGroup 9634 1 [anon_sym_LBRACK];
     AGroup 9636 1 [anon_sym_LPAREN]; AGroup 9640 1 [anon_sym_POUND];
     AGroup 9656 1 [sym_kSpecialize]; AGroup 9674 1 [sym_kInherited];
     AGroup 9680 1 [sym_kString]; AGroup 15506 1 [sym_kIf]; AGroup 3 2 syms_5;
     AGroup 9638 2 syms_6; AGroup 9642 2 syms_7; AGroup 9644 2 syms_8; AGroup 9646 2 syms_9;
     AGroup 9648 2 syms_10; AGroup 9668 2 syms_11; SGroup 7552 2 syms_12; SGroup 6534 3 syms_13;
     SGroup 7346 4 syms_14; AGroup 9650 5 syms_15; SGroup 7341 14 syms_17]);
   (180428, 8, [AGroup 5 1 [sym_ppDirective]; AGroup 3 2 syms_5; SGroup 8481 2 syms_12;
     SGroup 7166 3 syms_13; SGroup 8116 4 syms_14; AGroup 18189 5 syms_150;
     SGroup 8150 14 syms_17; AGroup 18187 19 syms_151]);
   (180495, 20, [AGroup 5 1 [sym_ppDirective]; AGroup 9634 1 [anon_sym_LBRACK];
     AGroup 9636 1 [anon_sym_LPAREN]; AGroup 9640 1 [anon_sym_POUND];
     AGroup 9656 1 [sym_kSpecialize]; AGroup 9674 1 [sym_kInherited];
     AGroup 9680 1 [sym_kString]; AGroup 15755 1 [sym_kIf]; AGroup 3 2 syms_5;
     AGroup 9638 2 syms_6; AGroup 9642 2 syms_7; AGroup 9644 2 syms_8; AGroup 9668 2 syms_11;
     AGroup 15747 2 syms_9; AGroup 15749 2 syms_10; SGroup 7552 2 syms_12; SGroup 6534 3 syms_13;
     SGroup 10312 4 syms_14; AGroup 18310 5 syms_15; SGroup 7347 14 syms_17]);
   (180586, 8, [AGroup 5 1 [sym_ppDirective]; AGroup 3 2 syms_5; SGroup 7995 2 syms_12;
     SGroup 7098 3 syms_13; SGroup 7908 4 syms_14; AGroup 18189 5 syms_150;
     SGroup 7895 14 syms_17; AGroup 18187 19 syms_151]);
   (180653, 8, [AGroup 5 1 [sym_ppDirective]; AGroup 3 2 syms_5; SGroup 3618 2 syms_12;
     SGroup 2833 3 syms_13; SGroup 3464 4 syms_14; AGroup 18189 5 syms_150;
     SGroup 3466 14 syms_17; AGroup 18187 19 syms_151]);
   (180720, 20, [AGroup 5 1 [sym_ppDirective]; AGroup 9634 1 [anon_sym_LBRACK];
     AGroup 9636 1 [anon_sym_LPAREN]; AGroup 9640 1 [anon_sym_POUND];
     AGroup 9656 1 [sym_kSpecialize]; AGroup 9674 1 [sym_kInherited];
     AGroup 9680 1 [sym_kString]; AGroup 15506 1 [sym_kIf]; AGroup 3 2 syms_5;
     AGroup 9638 2 syms_6; AGroup 9642 2 syms_7; AGroup 9644 2 syms_8; AGroup 9646 2 syms_9;
     AGroup 9648 2 syms_10; AGroup 9668 2 syms_11; SGroup 7552 2 syms_12; SGroup 6534 3 syms_13;
     SGroup 7348 4 syms_14; AGroup 9650 5 syms_15; SGroup 7341 14 syms_17]);
   (180811, 8, [AGroup 5 1 [sym_ppDirective]; AGroup 3 2 syms_5; SGroup 7828 2 syms_12;
     SGroup 7011 3 syms_13; SGroup 7561 4 syms_14; AGroup 18189 5 syms_150;
     SGroup 7566 14 syms_17; AGroup 18187 19 syms_151]);
   (180878, 20, [AGroup 5 1 [sym_ppDirective]; AGroup 15761 1 [anon_sym_LBRACK];
     AGroup 15763 1 [anon_sym_LPAREN]; AGroup 15767 1 [anon_sym_POUND];
     AGroup 15781 1 [sym_kSpecialize]; AGroup 15787 1 [sym_kInherited]; AGroup 16229 1 [sym_kIf];
     AGroup 17864 1 [sym_kString]; AGroup 3 2 syms_5; AGroup 15765 2 syms_6;
     AGroup 15769 2 syms_7; AGroup 15771 2 syms_8; AGroup 15783 2 syms_11; AGroup 16221 2 syms_9;
     AGroup 16223 2 syms_10; SGroup 9180 2 syms_12; SGroup 7467 3 syms_13;
     SGroup 10023 4 syms_14; AGroup 16225 5 syms_15; SGroup 9076 14 syms_17]);
   (180969, 8, [AGroup 5 1 [sym_ppDirective]; AGroup 3 2 syms_5; SGroup 7612 2 syms_12;
     SGroup 6946 3 syms_13; SGroup 7405 4 syms_14; AGroup 18189 5 syms_150;
     SGroup 7425 14 syms_17; AGroup 18187 19 syms_151]);
   (181036, 20, [AGroup 5 1 [sym_ppDirective]; AGroup 16021 1 [anon_sym_LBRACK];
     AGroup 16023 1 [anon_sym_LPAREN]; AGroup 16027 1 [anon_sym_POUND];
     AGroup 16041 1 [sym_kSpecialize]; AGroup 16045 1 [sym_kIf]; AGroup 16047 1 [sym_kInherited];
     AGroup 17344 1 [sym_kString]; AGroup 3 2 syms_5; AGroup 16025 2 syms_6;
     AGroup 16029 2 syms_7; AGroup 16031 2 syms_8; AGroup 16033 2 syms_9; AGroup 16035 2 syms_10;
     AGroup 16043 2 syms_11; SGroup 9151 2 syms_12; SGroup 7393 3 syms_13; SGroup 8776 4 syms_14;
     AGroup 16037 5 syms_15; SGroup 8705 14 syms_17]);
   (181127, 8, [AGroup 5 1 [sym_ppDirective]; AGroup 3 2 syms_5; SGroup 8530 2 syms_12;
     SGroup 7169 3 syms_13; SGroup 8018 4 syms_14; AGroup 18189 5 syms_150;
     SGroup 8170 14 syms_17; AGroup 18187 19 syms_151]);
   (181194, 2, [AGroup 3 3 syms_1; AGroup 11318 47 syms_155]);
   (181249, 8, [AGroup 5 1 [sym_ppDirective]; AGroup 3 2 syms_5; SGroup 8859 2 syms_12;
     SGroup 7280 3 syms_13; SGroup 8598 4 syms_14; AGroup 18189 5 syms_150;
     SGroup 8207 14 syms_17; AGroup 18187 19 syms_151]);
   (181316, 8, [AGroup 5 1 [sym_ppDirective]; AGroup 3 2 syms_5; SGroup 8445 2 syms_12;
     SGroup 7193 3 syms_13; SGroup 7947 4 syms_14; AGroup 18189 5 syms_150;
     SGroup 7957 14 syms_17; AGroup 18187 19 syms_151]);
   (181383, 8, [AGroup 5 1 [sym_ppDirective]; AGroup 3 2 syms_5; SGroup 8924 2 syms_12;
     SGroup 7300 3 syms_13; SGroup 8459 4 syms_14; AGroup 18189 5 syms_150;
     SGroup 8299 14 syms_17; AGroup 18187 19 syms_151]);
   (181450, 8, [AGroup 5 1 [sym_ppDirective]; AGroup 3 2 syms_5; SGroup 6992 2 syms_12;
     SGroup 5959 3 syms_13; SGroup 6886 4 syms_14; AGroup 18189 5 syms_150;
     SGroup 6884 14 syms_17; AGroup 18187 19 syms_151]);
   (181517, 20, [AGroup 5 1 [sym_ppDirective]; AGroup 15647 1 [anon_sym_LBRACK];
     AGroup 15653 1 [anon_sym_POUND]; AGroup 15667 1 [sym_kSpecialize];
     AGroup 15673 1 [sym_kInherited]; AGroup 15675 1 [sym_kString];
     AGroup 15745 1 [anon_sym_LPAREN]; AGroup 15755 1 [sym_kIf]; AGroup 3 2 syms_5;
     AGroup 15651 2 syms_6; AGroup 15655 2 syms_7; AGroup 15657 2 syms_8; AGroup 15669 2 syms_11;
     AGroup 15747 2 syms_9; AGroup 15749 2 syms_10; SGroup 8129 2 syms_12; SGroup 7100 3 syms_13;
     SGroup 10313 4 syms_14; AGroup 18312 5 syms_15; SGroup 9370 14 syms_17]);
   (181608, 20, [AGroup 5 1 [sym_ppDirective]; AGroup 9634 1 [anon_sym_LBRACK];
     AGroup 9636 1 [anon_sym_LPAREN]; AGroup 9640 1 [anon_sym_POUND];
     AGroup 9656 1 [sym_kSpecialize]; AGroup 9674 1 [sym_kInherited];
     AGroup 9680 1 [sym_kString]; AGroup 15506 1 [sym_kIf]; AGroup 3 2 syms_5;
     AGroup 9638 2 syms_6; AGroup 9642 2 syms_7; AGroup 9644 2 syms_8; AGroup 9646 2 syms_9;
     AGroup 9648 2 syms_10; AGroup 9668 2 syms_11; SGroup 7552 2 syms_12; SGroup 6534 3 syms_13;
     SGroup 7349 4 syms_14; AGroup 9650 5 syms_15; SGroup 7341 14 syms_17]);
   (181699, 8, [AGroup 5 1 [sym_ppDirective]; AGroup 3 2 syms_5; SGroup 8601 2 syms_12;
     SGroup 7304 3 syms_13; SGroup 8181 4 syms_14; AGroup 18189 5 syms_150;
     SGroup 8287 14 syms_17; AGroup 18187 19 syms_151]);
   (181766, 8, [AGroup 5 1 [sym_ppDirective]; AGroup 3 2 syms_5; SGroup 7416 2 syms_12;
     SGroup 6479 3 syms_13; SGroup 7266 4 syms_14; AGroup 18189 5 syms_150;
     SGroup 7271 14 syms_17; AGroup 18187 19 syms_151]);
   (181833, 8, [AGroup 5 1 [sym_ppDirective]; AGroup 3 2 syms_5; SGroup 7196 2 syms_12;
     SGroup 6178 3 syms_13; SGroup 7095 4 syms_14; AGroup 18189 5 syms_150;
     SGroup 7086 14 syms_17; AGroup 18187 19 syms_151]);
   (181900, 8, [AGroup 5 1 [sym_ppDirective]; AGroup 3 2 syms_5; SGroup 7694 2 syms_12;
     SGroup 6650 3 syms_13; SGroup 7376 4 syms_14; AGroup 18189 5 syms_150;
     SGroup 7401 14 syms_17; AGroup 18187 19 syms_151]);
   (181967, 20, [AGroup 5 1 [sym_ppDirective]; AGroup 15987 1 [anon_sym_LBRACK];
     AGroup 15989 1 [anon_sym_LPAREN]; AGroup 15993 1 [anon_sym_POUND];
     AGroup 16007 1 [sym_kSpecialize]; AGroup 16011 1 [sym_kIf]; AGroup 16013 1 [sym_kInherited];
     AGroup 18254 1 [sym_kString]; AGroup 3 2 syms_5; AGroup 15991 2 syms_6;
     AGroup 15995 2 syms_7; AGroup 15997 2 syms_8; AGroup 15999 2 syms_9; AGroup 16001 2 syms_10;
     AGroup 16009 2 syms_11; SGroup 9525 2 syms_12; SGroup 7769 3 syms_13; SGroup 9877 4 syms_14;
     AGroup 16003 5 syms_15; SGroup 9072 14 syms_17]);
   (182058, 20, [AGroup 5 1 [sym_ppDirective]; AGroup 15761 1 [anon_sym_LBRACK];
     AGroup 15763 1 [anon_sym_LPAREN]; AGroup 15767 1 [anon_sym_POUND];
     AGroup 15781 1 [sym_kSpecialize]; AGroup 15787 1 [sym_kInherited]; AGroup 16229 1 [sym_kIf];
     AGroup 17864 1 [sym_kString]; AGroup 3 2 syms_5; AGroup 15765 2 syms_6;
     AGroup 15769 2 syms_7; AGroup 15771 2 syms_8; AGroup 15783 2 syms_11; AGroup 16221 2 syms_9;
     AGroup 16223 2 syms_10; SGroup 9180 2 syms_12; SGroup 7467 3 syms_13; SGroup 9889 4 syms_14;
     AGroup 16225 5 syms_15; SGroup 9076 14 syms_17]);
   (182149, 20, [AGroup 5 1 [sym_ppDirective]; AGroup 15647 1 [anon_sym_LBRACK];
     AGroup 15653 1 [anon_sym_POUND]; AGroup 15667 1 [sym_kSpecialize];
     AGroup 15673 1 [sym_kInherited]; AGroup 15675 1 [sym_kString];
     AGroup 15745 1 [anon_sym_LPAREN]; AGroup 15755 1 [sym_kIf]; AGroup 3 2 syms_5;
     AGroup 15651 2 syms_6; AGroup 15655 2 syms_7; AGroup 15657 2 syms_8; AGroup 15669 2 syms_11;
     AGroup 15747 2 syms_9; AGroup 15749 2 syms_10; SGroup 8129 2 syms_12; SGroup 7100 3 syms_13;
     SGroup 9911 4 syms_14; AGroup 15751 5 syms_15; SGroup 8464 14 syms_17]);
   (182240, 20, [AGroup 5 1 [sym_ppDirective]; AGroup 16101 1 [anon_sym_LBRACK];
     AGroup 16103 1 [anon_sym_LPAREN]; AGroup 16107 1 [anon_sym_POUND];
     AGroup 16121 1 [sym_kSpecialize]; AGroup 16125 1 [sym_kIf]; AGroup 16127 1 [sym_kInherited];
     AGroup 17012 1 [sym_kString]; AGroup 3 2 syms_5; AGroup 16105 2 syms_6;
     AGroup 16109 2 syms_7; AGroup 16111 2 syms_8; AGroup 16113 2 syms_9; AGroup 16115 2 syms_10;
     AGroup 16123 2 syms_11; SGroup 8060 2 syms_12; SGroup 7068 3 syms_13; SGroup 7924 4 syms_14;
     AGroup 16117 5 syms_15; SGroup 7822 14 syms_17]);
   (182331, 31, [AGroup 5 1 [sym_ppDirective]; AGroup 13347 1 [anon_sym_LBRACK];
     AGroup 13351 1 [aux_sym_ppUsesBlock_token1]; AGroup 13365 1 [sym_identifier];
     AGroup 13367 1 [sym_kGeneric]; AGroup 13369 1 [sym_kOperator]; AGroup 13373 1 [sym_kStrict];
     AGroup 13377 1 [sym_kCase]; AGroup 13379 1 [sym_kClass]; AGroup 13391 1 [sym_kProperty];
     AGroup 13395 1 [sym_kType]; AGroup 18314 1 [anon_sym_SEMI]; AGroup 18316 1 [sym_kEnd];
     SGroup 2 1 [sym__ppIf]; SGroup 6354 1 [sym__visibility]; SGroup 9779 1 [sym_ppBlock];
     SGroup 9835 1 [sym__declOperator]; SGroup 10247 1 [sym__declProc];
     SGroup 10617 1 [sym_rttiAttributes]; SGroup 10730 1 [aux_sym_rttiAttributes_repeat2];
     SGroup 13987 1 [aux_sym_genericArg_repeat1]; SGroup 14434 1 [sym_declVariant];
     SGroup 14598 1 [sym__declClass]; AGroup 3 2 syms_5; AGroup 13381 2 syms_65;
     AGroup 13393 2 syms_66; SGroup 5685 2 syms_68; SGroup 10490 3 syms_69;
     AGroup 13383 4 syms_3; AGroup 13371 6 syms_70; SGroup 6150 6 syms_71]);
   (182444, 20, [AGroup 5 1 [sym_ppDirective]; AGroup 16131 1 [anon_sym_LBRACK];
     AGroup 16133 1 [anon_sym_LPAREN]; AGroup 16137 1 [anon_sym_POUND];
     AGroup 16151 1 [sym_kSpecialize]; AGroup 16155 1 [sym_kIf]; AGroup 16157 1 [sym_kInherited];
     AGroup 17420 1 [sym_kString]; AGroup 3 2 syms_5; AGroup 16135 2 syms_6;
     AGroup 16139 2 syms_7; AGroup 16141 2 syms_8; AGroup 16143 2 syms_9; AGroup 16145 2 syms_10;
     AGroup 16153 2 syms_11; SGroup 8630 2 syms_12; SGroup 7260 3 syms_13; SGroup 8176 4 syms_14;
     AGroup 16147 5 syms_15; SGroup 8446 14 syms_17]);
   (182535, 20, [AGroup 5 1 [sym_ppDirective]; AGroup 15647 1 [anon_sym_LBRACK];
     AGroup 15653 1 [anon_sym_POUND]; AGroup 15667 1 [sym_kSpecialize];
     AGroup 15673 1 [sym_kInherited]; AGroup 15675 1 [sym_kString];
     AGroup 15745 1 [anon_sym_LPAREN]; AGroup 15755 1 [sym_kIf]; AGroup 3 2 syms_5;
     AGroup 15651 2 syms_6; AGroup 15655 2 syms_7; AGroup 15657 2 syms_8; AGroup 15669 2 syms_11;
     AGroup 15747 2 syms_9; AGroup 15749 2 syms_10; SGroup 8129 2 syms_12; SGroup 7100 3 syms_13;
     SGroup 10145 4 syms_14; AGroup 15751 5 syms_15; SGroup 8464 14 syms_17]);
   (182626, 20, [AGroup 5 1 [sym_ppDirective]; AGroup 16405 1 [anon_sym_LBRACK];
     AGroup 16407 1 [anon_sym_LPAREN]; AGroup 16411 1 [anon_sym_POUND];
     AGroup 16425 1 [sym_kSpecialize]; AGroup 16429 1 [sym_kIf]; AGroup 16431 1 [sym_kInherited];
     AGroup 18223 1 [sym_kString]; AGroup 3 2 syms_5; AGroup 16409 2 syms_6;
     AGroup 16413 2 syms_7; AGroup 16415 2 syms_8; AGroup 16417 2 syms_9; AGroup 16419 2 syms_10;
     AGroup 16427 2 syms_11; SGroup 9247 2 syms_12; SGroup 7508 3 syms_13; SGroup 9734 4 syms_14;
     AGroup 16421 5 syms_15; SGroup 8844 14 syms_17]);
   (182717, 20, [AGroup 5 1 [sym_ppDirective]; AGroup 15647 1 [anon_sym_LBRACK];
     AGroup 15653 1 [anon_sym_POUND]; AGroup 15667 1 [sym_kSpecialize]; AGroup 15671 1 [sym_kIf];
     AGroup 15673 1 [sym_kInherited]; AGroup 15675 1 [sym_kString];
     AGroup 15745 1 [anon_sym_LPAREN]; AGroup 3 2 syms_5; AGroup 15651 2 syms_6;
     AGroup 15655 2 syms_7; AGroup 15657 2 syms_8; AGroup 15659 2 syms_9; AGroup 15661 2 syms_10;
     AGroup 15669 2 syms_11; SGroup 8129 2 syms_12; SGroup 7100 3 syms_13; SGroup 9688 4 syms_14;
     AGroup 15663 5 syms_15; SGroup 7786 14 syms_17]);
   (182808, 20, [AGroup 5 1 [sym_ppDirective]; AGroup 16021 1 [anon_sym_LBRACK];
     AGroup 16023 1 [anon_sym_LPAREN]; AGroup 16027 1 [anon_sym_POUND];
     AGroup 16041 1 [sym_kSpecialize]; AGroup 16045 1 [sym_kIf]; AGroup 16047 1 [sym_kInherited];
     AGroup 17344 1 [sym_kString]; AGroup 3 2 syms_5; AGroup 16025 2 syms_6;
     AGroup 16029 2 syms_7; AGroup 16031 2 syms_8; AGroup 16033 2 syms_9; AGroup 16035 2 syms_10;
     AGroup 16043 2 syms_11; SGroup 9151 2 syms_12; SGroup 7393 3 syms_13; SGroup 8749 4 syms_14;
     AGroup 16037 5 syms_15; SGroup 8705 14 syms_17]);
   (182899, 31, [AGroup 5 1 [sym_ppDirective]; AGroup 13347 1 [anon_sym_LBRACK];
     AGroup 13351 1 [aux_sym_ppUsesBlock_token1]; AGroup 13365 1 [sym_identifier];
     AGroup 13367 1 [sym_kGeneric]; AGroup 13369 1 [sym_kOperator]; AGroup 13373 1 [sym_kStrict];
     AGroup 13377 1 [sym_kCase]; AGroup 13379 1 [sym_kClass]; AGroup 13391 1 [sym_kProperty];
     AGroup 13395 1 [sym_kType]; AGroup 18318 1 [anon_sym_SEMI]; AGroup 18320 1 [sym_kEnd];
     SGroup 2 1 [sym__ppIf]; SGroup 6354 1 [sym__visibility]; SGroup 9779 1 [sym_ppBlock];
     SGroup 9835 1 [sym__declOperator]; SGroup 10247 1 [sym__declProc];
     SGroup 10617 1 [sym_rttiAttributes]; SGroup 10730 1 [aux_sym_rttiAttributes_repeat2];
     SGroup 13987 1 [aux_sym_genericArg_repeat1]; SGroup 14434 1 [sym_declVariant];
     SGroup 14601 1 [sym__declClass]; AGroup 3 2 syms_5; AGroup 13381 2 syms_65;
     AGroup 13393 2 syms_66; SGroup 5685 2 syms_68; SGroup 10490 3 syms_69;
     AGroup 13383 4 syms_3; AGroup 13371 6 syms_70; SGroup 6150 6 syms_71]);
   (183012, 20, [AGroup 5 1 [sym_ppDirective]; AGroup 15711 1 [anon_sym_LBRACK];
     AGroup 15713 1 [anon_sym_LPAREN]; AGroup 15717 1 [anon_sym_POUND];
     AGroup 15731 1 [sym_kSpecialize]; AGroup 15735 1 [sym_kIf]; AGroup 15737 1 [sym_kInherited];
     AGroup 17180 1 [sym_kString]; AGroup 3 2 syms_5; AGroup 15715 2 syms_6;
     AGroup 15719 2 syms_7; AGroup 15721 2 syms_8; AGroup 15723 2 syms_9; AGroup 15725 2 syms_10;
     AGroup 15733 2 syms_11; SGroup 9361 2 syms_12; SGroup 7548 3 syms_13; SGroup 8921 4 syms_14;
     AGroup 15727 5 syms_15; SGroup 8938 14 syms_17]);
   (183103, 20, [AGroup 5 1 [sym_ppDirective]; AGroup 47 1 [anon_sym_LPAREN]; AGroup 51 1 [anon_sym_POUND];
     AGroup 73 1 [sym_kSpecialize]; AGroup 105 1 [sym_kInherited]; AGroup 117 1 [sym_kString];
     AGroup 11060 1 [anon_sym_LBRACK]; AGroup 15829 1 [sym_kIf]; AGroup 3 2 syms_5;
     AGroup 49 2 syms_6; AGroup 53 2 syms_7; AGroup 55 2 syms_8; AGroup 61 2 syms_9;
     AGroup 63 2 syms_10; AGroup 11080 2 syms_11; SGroup 7888 2 syms_12; SGroup 6994 3 syms_13;
     SGroup 7695 4 syms_14; AGroup 65 5 syms_15; SGroup 7765 14 syms_17]);
   (183194, 20, [AGroup 5 1 [sym_ppDirective]; AGroup 15761 1 [anon_sym_LBRACK];
     AGroup 15763 1 [anon_sym_LPAREN]; AGroup 15767 1 [anon_sym_POUND];
     AGroup 15781 1 [sym_kSpecialize]; AGroup 15787 1 [sym_kInherited]; AGroup 16229 1 [sym_kIf];
     AGroup 17864 1 [sym_kString]; AGroup 3 2 syms_5; AGroup 15765 2 syms_6;
     AGroup 15769 2 syms_7; AGroup 15771 2 syms_8; AGroup 15783 2 syms_11; AGroup 16221 2 syms_9;
     AGroup 16223 2 syms_10; SGroup 9180 2 syms_12; SGroup 7467 3 syms_13; SGroup 9892 4 syms_14;
     AGroup 16225 5 syms_15; SGroup 9076 14 syms_17]);
   (183285, 20, [AGroup 5 1 [sym_ppDirective]; AGroup 15761 1 [anon_sym_LBRACK];
     AGroup 15763 1 [anon_sym_LPAREN]; AGroup 15767 1 [anon_sym_POUND];
     AGroup 15781 1 [sym_kSpecialize]; AGroup 15787 1 [sym_kInherited]; AGroup 16229 1 [sym_kIf];
     AGroup 17864 1 [sym_kString]; AGroup 3 2 syms_5; AGroup 15765 2 syms_6;
     AGroup 15769 2 syms_7; AGroup 15771 2 syms_8; AGroup 15783 2 syms_11; AGroup 16221 2 syms_9;
     AGroup 16223 2 syms_10; SGroup 9180 2 syms_12; SGroup 7467 3 syms_13; SGroup 9905 4 syms_14;
     AGroup 16225 5 syms_15; SGroup 9076 14 syms_17]);
   (183376, 20, [AGroup 5 1 [sym_ppDirective]; AGroup 16715 1 [anon_sym_LBRACK];
     AGroup 16717 1 [anon_sym_LPAREN]; AGroup 16721 1 [anon_sym_POUND];
     AGroup 16735 1 [sym_kSpecialize]; AGroup 16739 1 [sym_kIf]; AGroup 16741 1 [sym_kInherited];
     AGroup 18201 1 [sym_kString]; AGroup 3 2 syms_5; AGroup 16719 2 syms_6;
     AGroup 16723 2 syms_7; AGroup 16725 2 syms_8; AGroup 16727 2 syms_9; AGroup 16729 2 syms_10;
     AGroup 16737 2 syms_11; SGroup 7901 2 syms_12; SGroup 7014 3 syms_13; SGroup 8467 4 syms_14;
     AGroup 16731 5 syms_15; SGroup 7757 14 syms_17]);
   (183467, 20, [AGroup 5 1 [sym_ppDirective]; AGroup 47 1 [anon_sym_LPAREN]; AGroup 51 1 [anon_sym_POUND];
     AGroup 73 1 [sym_kSpecialize]; AGroup 105 1 [sym_kInherited]; AGroup 117 1 [sym_kString];
     AGroup 11060 1 [anon_sym_LBRACK]; AGroup 15829 1 [sym_kIf]; AGroup 3 2 syms_5;
     AGroup 49 2 syms_6; AGroup 53 2 syms_7; AGroup 55 2 syms_8; AGroup 61 2 syms_9;
     AGroup 63 2 syms_10; AGroup 11080 2 syms_11; SGroup 7888 2 syms_12; SGroup 6994 3 syms_13;
     SGroup 7696 4 syms_14; AGroup 65 5 syms_15; SGroup 7765 14 syms_17]);
   (183558, 20, [AGroup 5 1 [sym_ppDirective]; AGroup 15711 1 [anon_sym_LBRACK];
     AGroup 15713 1 [anon_sym_LPAREN]; AGroup 15717 1 [anon_sym_POUND];
     AGroup 15731 1 [sym_kSpecialize]; AGroup 15735 1 [sym_kIf]; AGroup 15737 1 [sym_kInherited];
     AGroup 17180 1 [sym_kString]; AGroup 3 2 syms_5; AGroup 15715 2 syms_6;
     AGroup 15719 2 syms_7; AGroup 15721 2 syms_8; AGroup 15723 2 syms_9; AGroup 15725 2 syms_10;
     AGroup 15733 2 syms_11; SGroup 9361 2 syms_12; SGroup 7548 3 syms_13; SGroup 8948 4 syms_14;
     AGroup 15727 5 syms_15; SGroup 8938 14 syms_17]);
   (183649, 20, [AGroup 5 1 [sym_ppDirective]; AGroup 16131 1 [anon_sym_LBRACK];
     AGroup 16133 1 [anon_sym_LPAREN]; AGroup 16137 1 [anon_sym_POUND];
     AGroup 16151 1 [sym_kSpecialize]; AGroup 16155 1 [sym_kIf]; AGroup 16157 1 [sym_kInherited];
     AGroup 17420 1 [sym_kString]; AGroup 3 2 syms_5; AGroup 16135 2 syms_6;
     AGroup 16139 2 syms_7; AGroup 16141 2 syms_8; AGroup 16143 2 syms_9; AGroup 16145 2 syms_10;
     AGroup 16153 2 syms_11; SGroup 8630 2 syms_12; SGroup 7260 3 syms_13; SGroup 8492 4 syms_14;
     AGroup 16147 5 syms_15; SGroup 8446 14 syms_17]);
   (183740, 20, [AGroup 5 1 [sym_ppDirective]; AGroup 15831 1 [anon_sym_LBRACK];
     AGroup 15833 1 [anon_sym_LPAREN]; AGroup 15837 1 [anon_sym_POUND];
     AGroup 15851 1 [sym_kSpecialize]; AGroup 15855 1 [sym_kIf]; AGroup 15857 1 [sym_kInherited];
     AGroup 17312 1 [sym_kString]; AGroup 3 2 syms_5; AGroup 15835 2 syms_6;
     AGroup 15839 2 syms_7; AGroup 15841 2 syms_8; AGroup 15843 2 syms_9; AGroup 15845 2 syms_10;
     AGroup 15853 2 syms_11; SGroup 9267 2 syms_12; SGroup 7556 3 syms_13; SGroup 9939 4 syms_14;
     AGroup 15847 5 syms_15; SGroup 8649 14 syms_17]);
   (183831, 20, [AGroup 5 1 [sym_ppDirective]; AGroup 15711 1 [anon_sym_LBRACK];
     AGroup 15713 1 [anon_sym_LPAREN]; AGroup 15717 1 [anon_sym_POUND];
     AGroup 15731 1 [sym_kSpecialize]; AGroup 15735 1 [sym_kIf]; AGroup 15737 1 [sym_kInherited];
     AGroup 17180 1 [sym_kString]; AGroup 3 2 syms_5; AGroup 15715 2 syms_6;
     AGroup 15719 2 syms_7; AGroup 15721 2 syms_8; AGroup 15723 2 syms_9; AGroup 15725 2 syms_10;
     AGroup 15733 2 syms_11; SGroup 9361 2 syms_12; SGroup 7548 3 syms_13; SGroup 8949 4 syms_14;
     AGroup 15727 5 syms_15; SGroup 8938 14 syms_17]);
   (183922, 20, [AGroup 5 1 [sym_ppDirective]; AGroup 15711 1 [anon_sym_LBRACK];
     AGroup 15713 1 [anon_sym_LPAREN]; AGroup 15717 1 [anon_sym_POUND];
     AGroup 15731 1 [sym_kSpecialize]; AGroup 15735 1 [sym_kIf]; AGroup 15737 1 [sym_kInherited];
     AGroup 17180 1 [sym_kString]; AGroup 3 2 syms_5; AGroup 15715 2 syms_6;
     AGroup 15719 2 syms_7; AGroup 15721 2 syms_8; AGroup 15723 2 syms_9; AGroup 15725 2 syms_10;
     AGroup 15733 2 syms_11; SGroup 9361 2 syms_12; SGroup 7548 3 syms_13; SGroup 8950 4 syms_14;
     AGroup 15727 5 syms_15; SGroup 8938 14 syms_17]);
   (184013, 20, [AGroup 5 1 [sym_ppDirective]; AGroup 15647 1 [anon_sym_LBRACK];
     AGroup 15653 1 [anon_sym_POUND]; AGroup 15667 1 [sym_kSpecialize];
     AGroup 15673 1 [sym_kInherited]; AGroup 15675 1 [sym_kString];
     AGroup 15745 1 [anon_sym_LPAREN]; AGroup 15755 1 [sym_kIf]; AGroup 3 2 syms_5;
     AGroup 15651 2 syms_6; AGroup 15655 2 syms_7; AGroup 15657 2 syms_8; AGroup 15669 2 syms_11;
     AGroup 15747 2 syms_9; AGroup 15749 2 syms_10; SGroup 8129 2 syms_12; SGroup 7100 3 syms_13;
     SGroup 9992 4 syms_14; AGroup 15751 5 syms_15; SGroup 8464 14 syms_17]);
   (184104, 20, [AGroup 5 1 [sym_ppDirective]; AGroup 15647 1 [anon_sym_LBRACK];
     AGroup 15653 1 [anon_sym_POUND]; AGroup 15667 1 [sym_kSpecialize];
     AGroup 15673 1 [sym_kInherited]; AGroup 15675 1 [sym_kString];
     AGroup 15745 1 [anon_sym_LPAREN]; AGroup 15755 1 [sym_kIf]; AGroup 3 2 syms_5;
     AGroup 15651 2 syms_6; AGroup 15655 2 syms_7; AGroup 15657 2 syms_8; AGroup 15669 2 syms_11;
     AGroup 15747 2 syms_9; AGroup 15749 2 syms_10; SGroup 8129 2 syms_12; SGroup 7100 3 syms_13;
     SGroup 10005 4 syms_14; AGroup 15751 5 syms_15; SGroup 8464 14 syms_17]);
   (184195, 21, [AGroup 5 1 [sym_ppDirective]; AGroup 15711 1 [anon_sym_LBRACK];
     AGroup 15713 1 [anon_sym_LPAREN]; AGroup 15717 1 [anon_sym_POUND]; AGroup 15725 1 [sym_kAt];
     AGroup 15731 1 [sym_kSpecialize]; AGroup 15735 1 [sym_kIf]; AGroup 15737 1 [sym_kInherited];
     AGroup 17180 1 [sym_kString]; AGroup 18322 1 [sym_kNot]; AGroup 3 2 syms_5;
     AGroup 15715 2 syms_6; AGroup 15719 2 syms_7; AGroup 15721 2 syms_8; AGroup 15723 2 syms_9;
     AGroup 15733 2 syms_11; SGroup 9361 2 syms_12; SGroup 7548 3 syms_13; SGroup 8950 4 syms_14;
     AGroup 15727 5 syms_15; SGroup 8938 14 syms_17])
  ].

(** States 4759 to 4858. *)
Definition small_runs_4759 : list small_run :=
  [
   (184288, 20, [AGroup 5 1 [sym_ppDirective]; AGroup 15711 1 [anon_sym_LBRACK];
     AGroup 15713 1 [anon_sym_LPAREN]; AGroup 15717 1 [anon_sym_POUND];
     AGroup 15731 1 [sym_kSpecialize]; AGroup 15735 1 [sym_kIf]; AGroup 15737 1 [sym_kInherited];
     AGroup 17180 1 [sym_kString]; AGroup 3 2 syms_5; AGroup 15715 2 syms_6;
     AGroup 15719 2 syms_7; AGroup 15721 2 syms_8; AGroup 15723 2 syms_9; AGroup 15725 2 syms_10;
     AGroup 15733 2 syms_11; SGroup 9361 2 syms_12; SGroup 7548 3 syms_13; SGroup 8951 4 syms_14;
     AGroup 15727 5 syms_15; SGroup 8938 14 syms_17]);
   (184379, 20, [AGroup 5 1 [sym_ppDirective]; AGroup 16405 1 [anon_sym_LBRACK];
     AGroup 16407 1 [anon_sym_LPAREN]; AGroup 16411 1 [anon_sym_POUND];
     AGroup 16425 1 [sym_kSpecialize]; AGroup 16429 1 [sym_kIf]; AGroup 16431 1 [sym_kInherited];
     AGroup 18223 1 [sym_kString]; AGroup 3 2 syms_5; AGroup 16409 2 syms_6;
     AGroup 16413 2 syms_7; AGroup 16415 2 syms_8; AGroup 16417 2 syms_9; AGroup 16419 2 syms_10;
     AGroup 16427 2 syms_11; SGroup 9247 2 syms_12; SGroup 7508 3 syms_13; SGroup 9822 4 syms_14;
     AGroup 16421 5 syms_15; SGroup 8844 14 syms_17]);
   (184470, 20, [AGroup 5 1 [sym_ppDirective]; AGroup 15647 1 [anon_sym_LBRACK];
     AGroup 15653 1 [anon_sym_POUND]; AGroup 15667 1 [sym_kSpecialize]; AGroup 15671 1 [sym_kIf];
     AGroup 15673 1 [sym_kInherited]; AGroup 15675 1 [sym_kString];
     AGroup 15745 1 [anon_sym_LPAREN]; AGroup 3 2 syms_5; AGroup 15651 2 syms_6;
     AGroup 15655 2 syms_7; AGroup 15657 2 syms_8; AGroup 15659 2 syms_9; AGroup 15661 2 syms_10;
     AGroup 15669 2 syms_11; SGroup 8129 2 syms_12; SGroup 7100 3 syms_13; SGroup 9691 4 syms_14;
     AGroup 15663 5 syms_15; SGroup 7786 14 syms_17]);
   (184561, 20, [AGroup 5 1 [sym_ppDirective]; AGroup 47 1 [anon_sym_LPAREN]; AGroup 51 1 [anon_sym_POUND];
     AGroup 73 1 [sym_kSpecialize]; AGroup 105 1 [sym_kInherited]; AGroup 117 1 [sym_kString];
     AGroup 11060 1 [anon_sym_LBRACK]; AGroup 15829 1 [sym_kIf]; AGroup 3 2 syms_5;
     AGroup 49 2 syms_6; AGroup 53 2 syms_7; AGroup 55 2 syms_8; AGroup 61 2 syms_9;
     AGroup 63 2 syms_10; AGroup 11080 2 syms_11; SGroup 7888 2 syms_12; SGroup 6994 3 syms_13;
     SGroup 7697 4 syms_14; AGroup 65 5 syms_15; SGroup 7765 14 syms_17]);
   (184652, 20, [AGroup 5 1 [sym_ppDirective]; AGroup 15711 1 [anon_sym_LBRACK];
     AGroup 15713 1 [anon_sym_LPAREN]; AGroup 15717 1 [anon_sym_POUND];
     AGroup 15731 1 [sym_kSpecialize]; AGroup 15737 1 [sym_kInherited]; AGroup 15755 1 [sym_kIf];
     AGroup 17180 1 [sym_kString]; AGroup 3 2 syms_5; AGroup 15715 2 syms_6;
     AGroup 15719 2 syms_7; AGroup 15721 2 syms_8; AGroup 15733 2 syms_11; AGroup 15747 2 syms_9;
     AGroup 15749 2 syms_10; SGroup 9361 2 syms_12; SGroup 7548 3 syms_13;
     SGroup 10264 4 syms_14; AGroup 18324 5 syms_15; SGroup 8953 14 syms_17]);
   (184743, 20, [AGroup 5 1 [sym_ppDirective]; AGroup 15647 1 [anon_sym_LBRACK];
     AGroup 15653 1 [anon_sym_POUND]; AGroup 15667 1 [sym_kSpecialize];
     AGroup 15673 1 [sym_kInherited]; AGroup 15675 1 [sym_kString];
     AGroup 15745 1 [anon_sym_LPAREN]; AGroup 15755 1 [sym_kIf]; AGroup 3 2 syms_5;
     AGroup 15651 2 syms_6; AGroup 15655 2 syms_7; AGroup 15657 2 syms_8; AGroup 15669 2 syms_11;
     AGroup 15747 2 syms_9; AGroup 15749 2 syms_10; SGroup 8129 2 syms_12; SGroup 7100 3 syms_13;
     SGroup 10074 4 syms_14; AGroup 15751 5 syms_15; SGroup 8464 14 syms_17]);
   (184834, 20, [AGroup 5 1 [sym_ppDirective]; AGroup 15647 1 [anon_sym_LBRACK];
     AGroup 15653 1 [anon_sym_POUND]; AGroup 15667 1 [sym_kSpecialize];
     AGroup 15673 1 [sym_kInherited]; AGroup 15675 1 [sym_kString];
     AGroup 15745 1 [anon_sym_LPAREN]; AGroup 15755 1 [sym_kIf]; AGroup 3 2 syms_5;
     AGroup 15651 2 syms_6; AGroup 15655 2 syms_7; AGroup 15657 2 syms_8; AGroup 15669 2 syms_11;
     AGroup 15747 2 syms_9; AGroup 15749 2 syms_10; SGroup 8129 2 syms_12; SGroup 7100 3 syms_13;
     SGroup 10313 4 syms_14; AGroup 18326 5 syms_15; SGroup 9082 14 syms_17]);
   (184925, 20, [AGroup 5 1 [sym_ppDirective]; AGroup 15647 1 [anon_sym_LBRACK];
     AGroup 15653 1 [anon_sym_POUND]; AGroup 15667 1 [sym_kSpecialize];
     AGroup 15673 1 [sym_kInherited]; AGroup 15675 1 [sym_kString];
     AGroup 15745 1 [anon_sym_LPAREN]; AGroup 15755 1 [sym_kIf]; AGroup 3 2 syms_5;
     AGroup 15651 2 syms_6; AGroup 15655 2 syms_7; AGroup 15657 2 syms_8; AGroup 15669 2 syms_11;
     AGroup 15747 2 syms_9; AGroup 15749 2 syms_10; SGroup 8129 2 syms_12; SGroup 7100 3 syms_13;
     SGroup 10313 4 syms_14; AGroup 18328 5 syms_15; SGroup 9101 14 syms_17]);
   (185016, 20, [AGroup 5 1 [sym_ppDirective]; AGroup 15711 1 [anon_sym_LBRACK];
     AGroup 15713 1 [anon_sym_LPAREN]; AGroup 15717 1 [anon_sym_POUND];
     AGroup 15731 1 [sym_kSpecialize]; AGroup 15735 1 [sym_kIf]; AGroup 15737 1 [sym_kInherited];
     AGroup 17180 1 [sym_kString]; AGroup 3 2 syms_5; AGroup 15715 2 syms_6;
     AGroup 15719 2 syms_7; AGroup 15721 2 syms_8; AGroup 15723 2 syms_9; AGroup 15725 2 syms_10;
     AGroup 15733 2 syms_11; SGroup 9361 2 syms_12; SGroup 7548 3 syms_13; SGroup 8956 4 syms_14;
     AGroup 15727 5 syms_15; SGroup 8938 14 syms_17]);
   (185107, 20, [AGroup 5 1 [sym_ppDirective]; AGroup 15647 1 [anon_sym_LBRACK];
     AGroup 15653 1 [anon_sym_POUND]; AGroup 15667 1 [sym_kSpecialize];
     AGroup 15673 1 [sym_kInherited]; AGroup 15675 1 [sym_kString];
     AGroup 15745 1 [anon_sym_LPAREN]; AGroup 15755 1 [sym_kIf]; AGroup 3 2 syms_5;
     AGroup 15651 2 syms_6; AGroup 15655 2 syms_7; AGroup 15657 2 syms_8; AGroup 15669 2 syms_11;
     AGroup 15747 2 syms_9; AGroup 15749 2 syms_10; SGroup 8129 2 syms_12; SGroup 7100 3 syms_13;
     SGroup 10313 4 syms_14; AGroup 18330 5 syms_15; SGroup 9119 14 syms_17]);
   (185198, 20, [AGroup 5 1 [sym_ppDirective]; AGroup 15647 1 [anon_sym_LBRACK];
     AGroup 15653 1 [anon_sym_POUND]; AGroup 15667 1 [sym_kSpecialize];
     AGroup 15673 1 [sym_kInherited]; AGroup 15675 1 [sym_kString];
     AGroup 15745 1 [anon_sym_LPAREN]; AGroup 15755 1 [sym_kIf]; AGroup 3 2 syms_5;
     AGroup 15651 2 syms_6; AGroup 15655 2 syms_7; AGroup 15657 2 syms_8; AGroup 15669 2 syms_11;
     AGroup 15747 2 syms_9; AGroup 15749 2 syms_10; SGroup 8129 2 syms_12; SGroup 7100 3 syms_13;
     SGroup 10313 4 syms_14; AGroup 18332 5 syms_15; SGroup 9122 14 syms_17]);
   (185289, 20, [AGroup 5 1 [sym_ppDirective]; AGroup 15647 1 [anon_sym_LBRACK];
     AGroup 15653 1 [anon_sym_POUND]; AGroup 15667 1 [sym_kSpecialize];
     AGroup 15673 1 [sym_kInherited]; AGroup 15675 1 [sym_kString];
     AGroup 15745 1 [anon_sym_LPAREN]; AGroup 15755 1 [sym_kIf]; AGroup 3 2 syms_5;
     AGroup 15651 2 syms_6; AGroup 15655 2 syms_7; AGroup 15657 2 syms_8; AGroup 15669 2 syms_11;
     AGroup 15747 2 syms_9; AGroup 15749 2 syms_10; SGroup 8129 2 syms_12; SGroup 7100 3 syms_13;
     SGroup 10313 4 syms_14; AGroup 18334 5 syms_15; SGroup 9146 14 syms_17]);
   (185380, 20, [AGroup 5 1 [sym_ppDirective]; AGroup 15647 1 [anon_sym_LBRACK];
     AGroup 15653 1 [anon_sym_POUND]; AGroup 15667 1 [sym_kSpecialize];
     AGroup 15673 1 [sym_kInherited]; AGroup 15675 1 [sym_kString];
     AGroup 15745 1 [anon_sym_LPAREN]; AGroup 15755 1 [sym_kIf]; AGroup 3 2 syms_5;
     AGroup 15651 2 syms_6; AGroup 15655 2 syms_7; AGroup 15657 2 syms_8; AGroup 15669 2 syms_11;
     AGroup 15747 2 syms_9; AGroup 15749 2 syms_10; SGroup 8129 2 syms_12; SGroup 7100 3 syms_13;
     SGroup 10313 4 syms_14; AGroup 18336 5 syms_15; SGroup 9149 14 syms_17]);
   (185471, 21, [AGroup 5 1 [sym_ppDirective]; AGroup 47 1 [anon_sym_LPAREN]; AGroup 51 1 [anon_sym_POUND];
     AGroup 63 1 [sym_kAt]; AGroup 73 1 [sym_kSpecialize]; AGroup 105 1 [sym_kInherited];
     AGroup 117 1 [sym_kString]; AGroup 11060 1 [anon_sym_LBRACK]; AGroup 15829 1 [sym_kIf];
     AGroup 18338 1 [sym_kNot]; AGroup 3 2 syms_5; AGroup 49 2 syms_6; AGroup 53 2 syms_7;
     AGroup 55 2 syms_8; AGroup 61 2 syms_9; AGroup 11080 2 syms_11; SGroup 7888 2 syms_12;
     SGroup 6994 3 syms_13; SGroup 7697 4 syms_14; AGroup 65 5 syms_15; SGroup 7765 14 syms_17]);
   (185564, 20, [AGroup 5 1 [sym_ppDirective]; AGroup 47 1 [anon_sym_LPAREN]; AGroup 51 1 [anon_sym_POUND];
     AGroup 73 1 [sym_kSpecialize]; AGroup 105 1 [sym_kInherited]; AGroup 117 1 [sym_kString];
     AGroup 11060 1 [anon_sym_LBRACK]; AGroup 15829 1 [sym_kIf]; AGroup 3 2 syms_5;
     AGroup 49 2 syms_6; AGroup 53 2 syms_7; AGroup 55 2 syms_8; AGroup 61 2 syms_9;
     AGroup 63 2 syms_10; AGroup 11080 2 syms_11; SGroup 7888 2 syms_12; SGroup 6994 3 syms_13;
     SGroup 7698 4 syms_14; AGroup 65 5 syms_15; SGroup 7765 14 syms_17]);
   (185655, 20, [AGroup 5 1 [sym_ppDirective]; AGroup 15647 1 [anon_sym_LBRACK];
     AGroup 15653 1 [anon_sym_POUND]; AGroup 15667 1 [sym_kSpecialize];
     AGroup 15673 1 [sym_kInherited]; AGroup 15675 1 [sym_kString];
     AGroup 15745 1 [anon_sym_LPAREN]; AGroup 15755 1 [sym_kIf]; AGroup 3 2 syms_5;
     AGroup 15651 2 syms_6; AGroup 15655 2 syms_7; AGroup 15657 2 syms_8; AGroup 15669 2 syms_11;
     AGroup 15747 2 syms_9; AGroup 15749 2 syms_10; SGroup 8129 2 syms_12; SGroup 7100 3 syms_13;
     SGroup 10313 4 syms_14; AGroup 18340 5 syms_15; SGroup 9153 14 syms_17]);
   (185746, 20, [AGroup 5 1 [sym_ppDirective]; AGroup 15647 1 [anon_sym_LBRACK];
     AGroup 15653 1 [anon_sym_POUND]; AGroup 15667 1 [sym_kSpecialize];
     AGroup 15673 1 [sym_kInherited]; AGroup 15675 1 [sym_kString];
     AGroup 15745 1 [anon_sym_LPAREN]; AGroup 15755 1 [sym_kIf]; AGroup 3 2 syms_5;
     AGroup 15651 2 syms_6; AGroup 15655 2 syms_7; AGroup 15657 2 syms_8; AGroup 15669 2 syms_11;
     AGroup 15747 2 syms_9; AGroup 15749 2 syms_10; SGroup 8129 2 syms_12; SGroup 7100 3 syms_13;
     SGroup 10313 4 syms_14; AGroup 18342 5 syms_15; SGroup 9175 14 syms_17]);
   (185837, 20, [AGroup 5 1 [sym_ppDirective]; AGroup 15647 1 [anon_sym_LBRACK];
     AGroup 15653 1 [anon_sym_POUND]; AGroup 15667 1 [sym_kSpecialize]; AGroup 15671 1 [sym_kIf];
     AGroup 15673 1 [sym_kInherited]; AGroup 15675 1 [sym_kString];
     AGroup 15745 1 [anon_sym_LPAREN]; AGroup 3 2 syms_5; AGroup 15651 2 syms_6;
     AGroup 15655 2 syms_7; AGroup 15657 2 syms_8; AGroup 15659 2 syms_9; AGroup 15661 2 syms_10;
     AGroup 15669 2 syms_11; SGroup 8129 2 syms_12; SGroup 7100 3 syms_13; SGroup 8941 4 syms_14;
     AGroup 15663 5 syms_15; SGroup 7786 14 syms_17]);
   (185928, 20, [AGroup 5 1 [sym_ppDirective]; AGroup 15647 1 [anon_sym_LBRACK];
     AGroup 15653 1 [anon_sym_POUND]; AGroup 15667 1 [sym_kSpecialize]; AGroup 15671 1 [sym_kIf];
     AGroup 15673 1 [sym_kInherited]; AGroup 15675 1 [sym_kString];
     AGroup 15745 1 [anon_sym_LPAREN]; AGroup 3 2 syms_5; AGroup 15651 2 syms_6;
     AGroup 15655 2 syms_7; AGroup 15657 2 syms_8; AGroup 15659 2 syms_9; AGroup 15661 2 syms_10;
     AGroup 15669 2 syms_11; SGroup 8129 2 syms_12; SGroup 7100 3 syms_13; SGroup 8799 4 syms_14;
     AGroup 15663 5 syms_15; SGroup 7786 14 syms_17]);
   (186019, 20, [AGroup 5 1 [sym_ppDirective]; AGroup 15647 1 [anon_sym_LBRACK];
     AGroup 15653 1 [anon_sym_POUND]; AGroup 15667 1 [sym_kSpecialize]; AGroup 15671 1 [sym_kIf];
     AGroup 15673 1 [sym_kInherited]; AGroup 15675 1 [sym_kString];
     AGroup 15745 1 [anon_sym_LPAREN]; AGroup 3 2 syms_5; AGroup 15651 2 syms_6;
     AGroup 15655 2 syms_7; AGroup 15657 2 syms_8; AGroup 15659 2 syms_9; AGroup 15661 2 syms_10;
     AGroup 15669 2 syms_11; SGroup 8129 2 syms_12; SGroup 7100 3 syms_13; SGroup 8800 4 syms_14;
     AGroup 15663 5 syms_15; SGroup 7786 14 syms_17]);
   (186110, 21, [AGroup 5 1 [sym_ppDirective]; AGroup 15647 1 [anon_sym_LBRACK];
     AGroup 15653 1 [anon_sym_POUND]; AGroup 15661 1 [sym_kAt]; AGroup 15667 1 [sym_kSpecialize];
     AGroup 15671 1 [sym_kIf]; AGroup 15673 1 [sym_kInherited]; AGroup 15675 1 [sym_kString];
     AGroup 15745 1 [anon_sym_LPAREN]; AGroup 18344 1 [sym_kNot]; AGroup 3 2 syms_5;
     AGroup 15651 2 syms_6; AGroup 15655 2 syms_7; AGroup 15657 2 syms_8; AGroup 15659 2 syms_9;
     AGroup 15669 2 syms_11; SGroup 8129 2 syms_12; SGroup 7100 3 syms_13; SGroup 8800 4 syms_14;
     AGroup 15663 5 syms_15; SGroup 7786 14 syms_17]);
   (186203, 20, [AGroup 5 1 [sym_ppDirective]; AGroup 15647 1 [anon_sym_LBRACK];
     AGroup 15653 1 [anon_sym_POUND]; AGroup 15667 1 [sym_kSpecialize]; AGroup 15671 1 [sym_kIf];
     AGroup 15673 1 [sym_kInherited]; AGroup 15675 1 [sym_kString];
     AGroup 15745 1 [anon_sym_LPAREN]; AGroup 3 2 syms_5; AGroup 15651 2 syms_6;
     AGroup 15655 2 syms_7; AGroup 15657 2 syms_8; AGroup 15659 2 syms_9; AGroup 15661 2 syms_10;
     AGroup 15669 2 syms_11; SGroup 8129 2 syms_12; SGroup 7100 3 syms_13; SGroup 8801 4 syms_14;
     AGroup 15663 5 syms_15; SGroup 7786 14 syms_17]);
   (186294, 20, [AGroup 5 1 [sym_ppDirective]; AGroup 15647 1 [anon_sym_LBRACK];
     AGroup 15653 1 [anon_sym_POUND]; AGroup 15667 1 [sym_kSpecialize]; AGroup 15671 1 [sym_kIf];
     AGroup 15673 1 [sym_kInherited]; AGroup 15675 1 [sym_kString];
     AGroup 15745 1 [anon_sym_LPAREN]; AGroup 3 2 syms_5; AGroup 15651 2 syms_6;
     AGroup 15655 2 syms_7; AGroup 15657 2 syms_8; AGroup 15659 2 syms_9; AGroup 15661 2 syms_10;
     AGroup 15669 2 syms_11; SGroup 8129 2 syms_12; SGroup 7100 3 syms_13; SGroup 8802 4 syms_14;
     AGroup 15663 5 syms_15; SGroup 7786 14 syms_17]);
   (186385, 20, [AGroup 5 1 [sym_ppDirective]; AGroup 15647 1 [anon_sym_LBRACK];
     AGroup 15653 1 [anon_sym_POUND]; AGroup 15667 1 [sym_kSpecialize]; AGroup 15671 1 [sym_kIf];
     AGroup 15673 1 [sym_kInherited]; AGroup 15675 1 [sym_kString];
     AGroup 15745 1 [anon_sym_LPAREN]; AGroup 3 2 syms_5; AGroup 15651 2 syms_6;
     AGroup 15655 2 syms_7; AGroup 15657 2 syms_8; AGroup 15659 2 syms_9; AGroup 15661 2 syms_10;
     AGroup 15669 2 syms_11; SGroup 8129 2 syms_12; SGroup 7100 3 syms_13; SGroup 8803 4 syms_14;
     AGroup 15663 5 syms_15; SGroup 7786 14 syms_17]);
   (186476, 20, [AGroup 5 1 [sym_ppDirective]; AGroup 15761 1 [anon_sym_LBRACK];
     AGroup 15763 1 [anon_sym_LPAREN]; AGroup 15767 1 [anon_sym_POUND];
     AGroup 15781 1 [sym_kSpecialize]; AGroup 15785 1 [sym_kIf]; AGroup 15787 1 [sym_kInherited];
     AGroup 17864 1 [sym_kString]; AGroup 3 2 syms_5; AGroup 15765 2 syms_6;
     AGroup 15769 2 syms_7; AGroup 15771 2 syms_8; AGroup 15773 2 syms_9; AGroup 15775 2 syms_10;
     AGroup 15783 2 syms_11; SGroup 9180 2 syms_12; SGroup 7467 3 syms_13; SGroup 8942 4 syms_14;
     AGroup 15777 5 syms_15; SGroup 8804 14 syms_17]);
   (186567, 20, [AGroup 5 1 [sym_ppDirective]; AGroup 15761 1 [anon_sym_LBRACK];
     AGroup 15763 1 [anon_sym_LPAREN]; AGroup 15767 1 [anon_sym_POUND];
     AGroup 15781 1 [sym_kSpecialize]; AGroup 15785 1 [sym_kIf]; AGroup 15787 1 [sym_kInherited];
     AGroup 17864 1 [sym_kString]; AGroup 3 2 syms_5; AGroup 15765 2 syms_6;
     AGroup 15769 2 syms_7; AGroup 15771 2 syms_8; AGroup 15773 2 syms_9; AGroup 15775 2 syms_10;
     AGroup 15783 2 syms_11; SGroup 9180 2 syms_12; SGroup 7467 3 syms_13; SGroup 8806 4 syms_14;
     AGroup 15777 5 syms_15; SGroup 8804 14 syms_17]);
   (186658, 20, [AGroup 5 1 [sym_ppDirective]; AGroup 15761 1 [anon_sym_LBRACK];
     AGroup 15763 1 [anon_sym_LPAREN]; AGroup 15767 1 [anon_sym_POUND];
     AGroup 15781 1 [sym_kSpecialize]; AGroup 15785 1 [sym_kIf]; AGroup 15787 1 [sym_kInherited];
     AGroup 17864 1 [sym_kString]; AGroup 3 2 syms_5; AGroup 15765 2 syms_6;
     AGroup 15769 2 syms_7; AGroup 15771 2 syms_8; AGroup 15773 2 syms_9; AGroup 15775 2 syms_10;
     AGroup 15783 2 syms_11; SGroup 9180 2 syms_12; SGroup 7467 3 syms_13; SGroup 8807 4 syms_14;
     AGroup 15777 5 syms_15; SGroup 8804 14 syms_17]);
   (186749, 21, [AGroup 5 1 [sym_ppDirective]; AGroup 16021 1 [anon_sym_LBRACK];
     AGroup 16023 1 [anon_sym_LPAREN]; AGroup 16027 1 [anon_sym_POUND]; AGroup 16035 1 [sym_kAt];
     AGroup 16041 1 [sym_kSpecialize]; AGroup 16045 1 [sym_kIf]; AGroup 16047 1 [sym_kInherited];
     AGroup 17344 1 [sym_kString]; AGroup 18346 1 [sym_kNot]; AGroup 3 2 syms_5;
     AGroup 16025 2 syms_6; AGroup 16029 2 syms_7; AGroup 16031 2 syms_8; AGroup 16033 2 syms_9;
     AGroup 16043 2 syms_11; SGroup 9151 2 syms_12; SGroup 7393 3 syms_13; SGroup 8749 4 syms_14;
     AGroup 16037 5 syms_15; SGroup 8705 14 syms_17]);
   (186842, 21, [AGroup 5 1 [sym_ppDirective]; AGroup 15761 1 [anon_sym_LBRACK];
     AGroup 15763 1 [anon_sym_LPAREN]; AGroup 15767 1 [anon_sym_POUND]; AGroup 15775 1 [sym_kAt];
     AGroup 15781 1 [sym_kSpecialize]; AGroup 15785 1 [sym_kIf]; AGroup 15787 1 [sym_kInherited];
     AGroup 17864 1 [sym_kString]; AGroup 18348 1 [sym_kNot]; AGroup 3 2 syms_5;
     AGroup 15765 2 syms_6; AGroup 15769 2 syms_7; AGroup 15771 2 syms_8; AGroup 15773 2 syms_9;
     AGroup 15783 2 syms_11; SGroup 9180 2 syms_12; SGroup 7467 3 syms_13; SGroup 8808 4 syms_14;
     AGroup 15777 5 syms_15; SGroup 8804 14 syms_17]);
   (186935, 20, [AGroup 5 1 [sym_ppDirective]; AGroup 15761 1 [anon_sym_LBRACK];
     AGroup 15763 1 [anon_sym_LPAREN]; AGroup 15767 1 [anon_sym_POUND];
     AGroup 15781 1 [sym_kSpecialize]; AGroup 15785 1 [sym_kIf]; AGroup 15787 1 [sym_kInherited];
     AGroup 17864 1 [sym_kString]; AGroup 3 2 syms_5; AGroup 15765 2 syms_6;
     AGroup 15769 2 syms_7; AGroup 15771 2 syms_8; AGroup 15773 2 syms_9; AGroup 15775 2 syms_10;
     AGroup 15783 2 syms_11; SGroup 9180 2 syms_12; SGroup 7467 3 syms_13; SGroup 8809 4 syms_14;
     AGroup 15777 5 syms_15; SGroup 8804 14 syms_17]);
   (187026, 20, [AGroup 5 1 [sym_ppDirective]; AGroup 15761 1 [anon_sym_LBRACK];
     AGroup 15763 1 [anon_sym_LPAREN]; AGroup 15767 1 [anon_sym_POUND];
     AGroup 15781 1 [sym_kSpecialize]; AGroup 15785 1 [sym_kIf]; AGroup 15787 1 [sym_kInherited];
     AGroup 17864 1 [sym_kString]; AGroup 3 2 syms_5; AGroup 15765 2 syms_6;
     AGroup 15769 2 syms_7; AGroup 15771 2 syms_8; AGroup 15773 2 syms_9; AGroup 15775 2 syms_10;
     AGroup 15783 2 syms_11; SGroup 9180 2 syms_12; SGroup 7467 3 syms_13; SGroup 8810 4 syms_14;
     AGroup 15777 5 syms_15; SGroup 8804 14 syms_17]);
   (187117, 20, [AGroup 5 1 [sym_ppDirective]; AGroup 15761 1 [anon_sym_LBRACK];
     AGroup 15763 1 [anon_sym_LPAREN]; AGroup 15767 1 [anon_sym_POUND];
     AGroup 15781 1 [sym_kSpecialize]; AGroup 15785 1 [sym_kIf]; AGroup 15787 1 [sym_kInherited];
     AGroup 17864 1 [sym_kString]; AGroup 3 2 syms_5; AGroup 15765 2 syms_6;
     AGroup 15769 2 syms_7; AGroup 15771 2 syms_8; AGroup 15773 2 syms_9; AGroup 15775 2 syms_10;
     AGroup 15783 2 syms_11; SGroup 9180 2 syms_12; SGroup 7467 3 syms_13; SGroup 8811 4 syms_14;
     AGroup 15777 5 syms_15; SGroup 8804 14 syms_17]);
   (187208, 20, [AGroup 5 1 [sym_ppDirective]; AGroup 14983 1 [anon_sym_LBRACK];
     AGroup 14985 1 [anon_sym_LPAREN]; AGroup 14989 1 [anon_sym_POUND];
     AGroup 15001 1 [sym_kSpecialize]; AGroup 15007 1 [sym_kInherited];
     AGroup 15009 1 [sym_kString]; AGroup 15187 1 [sym_kIf]; AGroup 3 2 syms_5;
     AGroup 14987 2 syms_6; AGroup 14991 2 syms_7; AGroup 14993 2 syms_8; AGroup 15003 2 syms_11;
     AGroup 15181 2 syms_9; AGroup 15183 2 syms_10; SGroup 7132 2 syms_12; SGroup 6248 3 syms_13;
     SGroup 7211 4 syms_14; AGroup 15185 5 syms_15; SGroup 7210 14 syms_17]);
   (187299, 20, [AGroup 5 1 [sym_ppDirective]; AGroup 14983 1 [anon_sym_LBRACK];
     AGroup 14985 1 [anon_sym_LPAREN]; AGroup 14989 1 [anon_sym_POUND];
     AGroup 15001 1 [sym_kSpecialize]; AGroup 15007 1 [sym_kInherited];
     AGroup 15009 1 [sym_kString]; AGroup 15187 1 [sym_kIf]; AGroup 3 2 syms_5;
     AGroup 14987 2 syms_6; AGroup 14991 2 syms_7; AGroup 14993 2 syms_8; AGroup 15003 2 syms_11;
     AGroup 15181 2 syms_9; AGroup 15183 2 syms_10; SGroup 7132 2 syms_12; SGroup 6248 3 syms_13;
     SGroup 7212 4 syms_14; AGroup 15185 5 syms_15; SGroup 7210 14 syms_17]);
   (187390, 20, [AGroup 5 1 [sym_ppDirective]; AGroup 14983 1 [anon_sym_LBRACK];
     AGroup 14985 1 [anon_sym_LPAREN]; AGroup 14989 1 [anon_sym_POUND];
     AGroup 15001 1 [sym_kSpecialize]; AGroup 15007 1 [sym_kInherited];
     AGroup 15009 1 [sym_kString]; AGroup 15187 1 [sym_kIf]; AGroup 3 2 syms_5;
     AGroup 14987 2 syms_6; AGroup 14991 2 syms_7; AGroup 14993 2 syms_8; AGroup 15003 2 syms_11;
     AGroup 15181 2 syms_9; AGroup 15183 2 syms_10; SGroup 7132 2 syms_12; SGroup 6248 3 syms_13;
     SGroup 7213 4 syms_14; AGroup 15185 5 syms_15; SGroup 7210 14 syms_17]);
   (187481, 21, [AGroup 5 1 [sym_ppDirective]; AGroup 14983 1 [anon_sym_LBRACK];
     AGroup 14985 1 [anon_sym_LPAREN]; AGroup 14989 1 [anon_sym_POUND];
     AGroup 15001 1 [sym_kSpecialize]; AGroup 15007 1 [sym_kInherited];
     AGroup 15009 1 [sym_kString]; AGroup 15183 1 [sym_kAt]; AGroup 15187 1 [sym_kIf];
     AGroup 18350 1 [sym_kNot]; AGroup 3 2 syms_5; AGroup 14987 2 syms_6; AGroup 14991 2 syms_7;
     AGroup 14993 2 syms_8; AGroup 15003 2 syms_11; AGroup 15181 2 syms_9; SGroup 7132 2 syms_12;
     SGroup 6248 3 syms_13; SGroup 7213 4 syms_14; AGroup 15185 5 syms_15; SGroup 7210 14 syms_17]);
   (187574, 20, [AGroup 5 1 [sym_ppDirective]; AGroup 14983 1 [anon_sym_LBRACK];
     AGroup 14985 1 [anon_sym_LPAREN]; AGroup 14989 1 [anon_sym_POUND];
     AGroup 15001 1 [sym_kSpecialize]; AGroup 15007 1 [sym_kInherited];
     AGroup 15009 1 [sym_kString]; AGroup 15187 1 [sym_kIf]; AGroup 3 2 syms_5;
     AGroup 14987 2 syms_6; AGroup 14991 2 syms_7; AGroup 14993 2 syms_8; AGroup 15003 2 syms_11;
     AGroup 15181 2 syms_9; AGroup 15183 2 syms_10; SGroup 7132 2 syms_12; SGroup 6248 3 syms_13;
     SGroup 7214 4 syms_14; AGroup 15185 5 syms_15; SGroup 7210 14 syms_17]);
   (187665, 20, [AGroup 5 1 [sym_ppDirective]; AGroup 14983 1 [anon_sym_LBRACK];
     AGroup 14985 1 [anon_sym_LPAREN]; AGroup 14989 1 [anon_sym_POUND];
     AGroup 15001 1 [sym_kSpecialize]; AGroup 15007 1 [sym_kInherited];
     AGroup 15009 1 [sym_kString]; AGroup 15187 1 [sym_kIf]; AGroup 3 2 syms_5;
     AGroup 14987 2 syms_6; AGroup 14991 2 syms_7; AGroup 14993 2 syms_8; AGroup 15003 2 syms_11;
     AGroup 15181 2 syms_9; AGroup 15183 2 syms_10; SGroup 7132 2 syms_12; SGroup 6248 3 syms_13;
     SGroup 7215 4 syms_14; AGroup 15185 5 syms_15; SGroup 7210 14 syms_17]);
   (187756, 20, [AGroup 5 1 [sym_ppDirective]; AGroup 14983 1 [anon_sym_LBRACK];
     AGroup 14985 1 [anon_sym_LPAREN]; AGroup 14989 1 [anon_sym_POUND];
     AGroup 15001 1 [sym_kSpecialize]; AGroup 15007 1 [sym_kInherited];
     AGroup 15009 1 [sym_kString]; AGroup 15187 1 [sym_kIf]; AGroup 3 2 syms_5;
     AGroup 14987 2 syms_6; AGroup 14991 2 syms_7; AGroup 14993 2 syms_8; AGroup 15003 2 syms_11;
     AGroup 15181 2 syms_9; AGroup 15183 2 syms_10; SGroup 7132 2 syms_12; SGroup 6248 3 syms_13;
     SGroup 7216 4 syms_14; AGroup 15185 5 syms_15; SGroup 7210 14 syms_17]);
   (187847, 8, [AGroup 5 1 [sym_ppDirective]; AGroup 3 2 syms_5; SGroup 9180 2 syms_12;
     SGroup 7467 3 syms_13; SGroup 8942 4 syms_14; AGroup 18189 5 syms_150;
     SGroup 8804 14 syms_17; AGroup 18187 19 syms_151]);
   (187914, 8, [AGroup 5 1 [sym_ppDirective]; AGroup 3 2 syms_5; SGroup 8129 2 syms_12;
     SGroup 7100 3 syms_13; SGroup 8587 4 syms_14; AGroup 18189 5 syms_150;
     SGroup 8367 14 syms_17; AGroup 18187 19 syms_151]);
   (187981, 8, [AGroup 5 1 [sym_ppDirective]; AGroup 3 2 syms_5; SGroup 7132 2 syms_12;
     SGroup 6248 3 syms_13; SGroup 7222 4 syms_14; AGroup 18189 5 syms_150;
     SGroup 7210 14 syms_17; AGroup 18187 19 syms_151]);
   (188048, 20, [AGroup 5 1 [sym_ppDirective]; AGroup 15987 1 [anon_sym_LBRACK];
     AGroup 15989 1 [anon_sym_LPAREN]; AGroup 15993 1 [anon_sym_POUND];
     AGroup 16007 1 [sym_kSpecialize]; AGroup 16011 1 [sym_kIf]; AGroup 16013 1 [sym_kInherited];
     AGroup 18254 1 [sym_kString]; AGroup 3 2 syms_5; AGroup 15991 2 syms_6;
     AGroup 15995 2 syms_7; AGroup 15997 2 syms_8; AGroup 15999 2 syms_9; AGroup 16001 2 syms_10;
     AGroup 16009 2 syms_11; SGroup 9525 2 syms_12; SGroup 7769 3 syms_13; SGroup 9894 4 syms_14;
     AGroup 16003 5 syms_15; SGroup 9072 14 syms_17]);
   (188139, 20, [AGroup 5 1 [sym_ppDirective]; AGroup 15761 1 [anon_sym_LBRACK];
     AGroup 15763 1 [anon_sym_LPAREN]; AGroup 15767 1 [anon_sym_POUND];
     AGroup 15781 1 [sym_kSpecialize]; AGroup 15787 1 [sym_kInherited]; AGroup 16229 1 [sym_kIf];
     AGroup 17864 1 [sym_kString]; AGroup 3 2 syms_5; AGroup 15765 2 syms_6;
     AGroup 15769 2 syms_7; AGroup 15771 2 syms_8; AGroup 15783 2 syms_11; AGroup 16221 2 syms_9;
     AGroup 16223 2 syms_10; SGroup 9180 2 syms_12; SGroup 7467 3 syms_13; SGroup 9902 4 syms_14;
     AGroup 16225 5 syms_15; SGroup 9076 14 syms_17]);
   (188230, 20, [AGroup 5 1 [sym_ppDirective]; AGroup 16131 1 [anon_sym_LBRACK];
     AGroup 16133 1 [anon_sym_LPAREN]; AGroup 16137 1 [anon_sym_POUND];
     AGroup 16151 1 [sym_kSpecialize]; AGroup 16155 1 [sym_kIf]; AGroup 16157 1 [sym_kInherited];
     AGroup 17420 1 [sym_kString]; AGroup 3 2 syms_5; AGroup 16135 2 syms_6;
     AGroup 16139 2 syms_7; AGroup 16141 2 syms_8; AGroup 16143 2 syms_9; AGroup 16145 2 syms_10;
     AGroup 16153 2 syms_11; SGroup 8630 2 syms_12; SGroup 7260 3 syms_13; SGroup 8494 4 syms_14;
     AGroup 16147 5 syms_15; SGroup 8446 14 syms_17]);
   (188321, 20, [AGroup 5 1 [sym_ppDirective]; AGroup 15647 1 [anon_sym_LBRACK];
     AGroup 15653 1 [anon_sym_POUND]; AGroup 15667 1 [sym_kSpecialize];
     AGroup 15673 1 [sym_kInherited]; AGroup 15675 1 [sym_kString];
     AGroup 15745 1 [anon_sym_LPAREN]; AGroup 15755 1 [sym_kIf]; AGroup 3 2 syms_5;
     AGroup 15651 2 syms_6; AGroup 15655 2 syms_7; AGroup 15657 2 syms_8; AGroup 15669 2 syms_11;
     AGroup 15747 2 syms_9; AGroup 15749 2 syms_10; SGroup 8129 2 syms_12; SGroup 7100 3 syms_13;
     SGroup 9928 4 syms_14; AGroup 15751 5 syms_15; SGroup 8464 14 syms_17]);
   (188412, 20, [AGroup 5 1 [sym_ppDirective]; AGroup 16131 1 [anon_sym_LBRACK];
     AGroup 16133 1 [anon_sym_LPAREN]; AGroup 16137 1 [anon_sym_POUND];
     AGroup 16151 1 [sym_kSpecialize]; AGroup 16155 1 [sym_kIf]; AGroup 16157 1 [sym_kInherited];
     AGroup 17420 1 [sym_kString]; AGroup 3 2 syms_5; AGroup 16135 2 syms_6;
     AGroup 16139 2 syms_7; AGroup 16141 2 syms_8; AGroup 16143 2 syms_9; AGroup 16145 2 syms_10;
     AGroup 16153 2 syms_11; SGroup 8630 2 syms_12; SGroup 7260 3 syms_13; SGroup 8495 4 syms_14;
     AGroup 16147 5 syms_15; SGroup 8446 14 syms_17]);
   (188503, 21, [AGroup 5 1 [sym_ppDirective]; AGroup 16131 1 [anon_sym_LBRACK];
     AGroup 16133 1 [anon_sym_LPAREN]; AGroup 16137 1 [anon_sym_POUND]; AGroup 16145 1 [sym_kAt];
     AGroup 16151 1 [sym_kSpecialize]; AGroup 16155 1 [sym_kIf]; AGroup 16157 1 [sym_kInherited];
     AGroup 17420 1 [sym_kString]; AGroup 18352 1 [sym_kNot]; AGroup 3 2 syms_5;
     AGroup 16135 2 syms_6; AGroup 16139 2 syms_7; AGroup 16141 2 syms_8; AGroup 16143 2 syms_9;
     AGroup 16153 2 syms_11; SGroup 8630 2 syms_12; SGroup 7260 3 syms_13; SGroup 8495 4 syms_14;
     AGroup 16147 5 syms_15; SGroup 8446 14 syms_17]);
   (188596, 20, [AGroup 5 1 [sym_ppDirective]; AGroup 15711 1 [anon_sym_LBRACK];
     AGroup 15713 1 [anon_sym_LPAREN]; AGroup 15717 1 [anon_sym_POUND];
     AGroup 15731 1 [sym_kSpecialize]; AGroup 15735 1 [sym_kIf]; AGroup 15737 1 [sym_kInherited];
     AGroup 17180 1 [sym_kString]; AGroup 3 2 syms_5; AGroup 15715 2 syms_6;
     AGroup 15719 2 syms_7; AGroup 15721 2 syms_8; AGroup 15723 2 syms_9; AGroup 15725 2 syms_10;
     AGroup 15733 2 syms_11; SGroup 9361 2 syms_12; SGroup 7548 3 syms_13; SGroup 8961 4 syms_14;
     AGroup 15727 5 syms_15; SGroup 8938 14 syms_17]);
   (188687, 20, [AGroup 5 1 [sym_ppDirective]; AGroup 15647 1 [anon_sym_LBRACK];
     AGroup 15653 1 [anon_sym_POUND]; AGroup 15667 1 [sym_kSpecialize];
     AGroup 15673 1 [sym_kInherited]; AGroup 15675 1 [sym_kString];
     AGroup 15745 1 [anon_sym_LPAREN]; AGroup 15755 1 [sym_kIf]; AGroup 3 2 syms_5;
     AGroup 15651 2 syms_6; AGroup 15655 2 syms_7; AGroup 15657 2 syms_8; AGroup 15669 2 syms_11;
     AGroup 15747 2 syms_9; AGroup 15749 2 syms_10; SGroup 8129 2 syms_12; SGroup 7100 3 syms_13;
     SGroup 10088 4 syms_14; AGroup 15751 5 syms_15; SGroup 8464 14 syms_17]);
   (188778, 20, [AGroup 5 1 [sym_ppDirective]; AGroup 16405 1 [anon_sym_LBRACK];
     AGroup 16407 1 [anon_sym_LPAREN]; AGroup 16411 1 [anon_sym_POUND];
     AGroup 16425 1 [sym_kSpecialize]; AGroup 16429 1 [sym_kIf]; AGroup 16431 1 [sym_kInherited];
     AGroup 18223 1 [sym_kString]; AGroup 3 2 syms_5; AGroup 16409 2 syms_6;
     AGroup 16413 2 syms_7; AGroup 16415 2 syms_8; AGroup 16417 2 syms_9; AGroup 16419 2 syms_10;
     AGroup 16427 2 syms_11; SGroup 9247 2 syms_12; SGroup 7508 3 syms_13; SGroup 9704 4 syms_14;
     AGroup 16421 5 syms_15; SGroup 8844 14 syms_17]);
   (188869, 20, [AGroup 5 1 [sym_ppDirective]; AGroup 16131 1 [anon_sym_LBRACK];
     AGroup 16133 1 [anon_sym_LPAREN]; AGroup 16137 1 [anon_sym_POUND];
     AGroup 16151 1 [sym_kSpecialize]; AGroup 16155 1 [sym_kIf]; AGroup 16157 1 [sym_kInherited];
     AGroup 17420 1 [sym_kString]; AGroup 3 2 syms_5; AGroup 16135 2 syms_6;
     AGroup 16139 2 syms_7; AGroup 16141 2 syms_8; AGroup 16143 2 syms_9; AGroup 16145 2 syms_10;
     AGroup 16153 2 syms_11; SGroup 8630 2 syms_12; SGroup 7260 3 syms_13; SGroup 8496 4 syms_14;
     AGroup 16147 5 syms_15; SGroup 8446 14 syms_17]);
   (188960, 20, [AGroup 5 1 [sym_ppDirective]; AGroup 15761 1 [anon_sym_LBRACK];
     AGroup 15763 1 [anon_sym_LPAREN]; AGroup 15767 1 [anon_sym_POUND];
     AGroup 15781 1 [sym_kSpecialize]; AGroup 15787 1 [sym_kInherited]; AGroup 16229 1 [sym_kIf];
     AGroup 17864 1 [sym_kString]; AGroup 3 2 syms_5; AGroup 15765 2 syms_6;
     AGroup 15769 2 syms_7; AGroup 15771 2 syms_8; AGroup 15783 2 syms_11; AGroup 16221 2 syms_9;
     AGroup 16223 2 syms_10; SGroup 9180 2 syms_12; SGroup 7467 3 syms_13;
     SGroup 10168 4 syms_14; AGroup 16225 5 syms_15; SGroup 9076 14 syms_17]);
   (189051, 20, [AGroup 5 1 [sym_ppDirective]; AGroup 15761 1 [anon_sym_LBRACK];
     AGroup 15763 1 [anon_sym_LPAREN]; AGroup 15767 1 [anon_sym_POUND];
     AGroup 15781 1 [sym_kSpecialize]; AGroup 15787 1 [sym_kInherited]; AGroup 16229 1 [sym_kIf];
     AGroup 17864 1 [sym_kString]; AGroup 3 2 syms_5; AGroup 15765 2 syms_6;
     AGroup 15769 2 syms_7; AGroup 15771 2 syms_8; AGroup 15783 2 syms_11; AGroup 16221 2 syms_9;
     AGroup 16223 2 syms_10; SGroup 9180 2 syms_12; SGroup 7467 3 syms_13;
     SGroup 10169 4 syms_14; AGroup 16225 5 syms_15; SGroup 9076 14 syms_17]);
   (189142, 20, [AGroup 5 1 [sym_ppDirective]; AGroup 16715 1 [anon_sym_LBRACK];
     AGroup 16717 1 [anon_sym_LPAREN]; AGroup 16721 1 [anon_sym_POUND];
     AGroup 16735 1 [sym_kSpecialize]; AGroup 16739 1 [sym_kIf]; AGroup 16741 1 [sym_kInherited];
     AGroup 18201 1 [sym_kString]; AGroup 3 2 syms_5; AGroup 16719 2 syms_6;
     AGroup 16723 2 syms_7; AGroup 16725 2 syms_8; AGroup 16727 2 syms_9; AGroup 16729 2 syms_10;
     AGroup 16737 2 syms_11; SGroup 7901 2 syms_12; SGroup 7014 3 syms_13; SGroup 8254 4 syms_14;
     AGroup 16731 5 syms_15; SGroup 7757 14 syms_17]);
   (189233, 20, [AGroup 5 1 [sym_ppDirective]; AGroup 15831 1 [anon_sym_LBRACK];
     AGroup 15833 1 [anon_sym_LPAREN]; AGroup 15837 1 [anon_sym_POUND];
     AGroup 15851 1 [sym_kSpecialize]; AGroup 15855 1 [sym_kIf]; AGroup 15857 1 [sym_kInherited];
     AGroup 17312 1 [sym_kString]; AGroup 3 2 syms_5; AGroup 15835 2 syms_6;
     AGroup 15839 2 syms_7; AGroup 15841 2 syms_8; AGroup 15843 2 syms_9; AGroup 15845 2 syms_10;
     AGroup 15853 2 syms_11; SGroup 9267 2 syms_12; SGroup 7556 3 syms_13;
     SGroup 10179 4 syms_14; AGroup 15847 5 syms_15; SGroup 8649 14 syms_17]);
   (189324, 20, [AGroup 5 1 [sym_ppDirective]; AGroup 15647 1 [anon_sym_LBRACK];
     AGroup 15653 1 [anon_sym_POUND]; AGroup 15667 1 [sym_kSpecialize];
     AGroup 15673 1 [sym_kInherited]; AGroup 15675 1 [sym_kString];
     AGroup 15745 1 [anon_sym_LPAREN]; AGroup 15755 1 [sym_kIf]; AGroup 3 2 syms_5;
     AGroup 15651 2 syms_6; AGroup 15655 2 syms_7; AGroup 15657 2 syms_8; AGroup 15669 2 syms_11;
     AGroup 15747 2 syms_9; AGroup 15749 2 syms_10; SGroup 8129 2 syms_12; SGroup 7100 3 syms_13;
     SGroup 10215 4 syms_14; AGroup 15751 5 syms_15; SGroup 8464 14 syms_17]);
   (189415, 20, [AGroup 5 1 [sym_ppDirective]; AGroup 15647 1 [anon_sym_LBRACK];
     AGroup 15653 1 [anon_sym_POUND]; AGroup 15667 1 [sym_kSpecialize];
     AGroup 15673 1 [sym_kInherited]; AGroup 15675 1 [sym_kString];
     AGroup 15745 1 [anon_sym_LPAREN]; AGroup 15755 1 [sym_kIf]; AGroup 3 2 syms_5;
     AGroup 15651 2 syms_6; AGroup 15655 2 syms_7; AGroup 15657 2 syms_8; AGroup 15669 2 syms_11;
     AGroup 15747 2 syms_9; AGroup 15749 2 syms_10; SGroup 8129 2 syms_12; SGroup 7100 3 syms_13;
     SGroup 10227 4 syms_14; AGroup 15751 5 syms_15; SGroup 8464 14 syms_17]);
   (189506, 20, [AGroup 5 1 [sym_ppDirective]; AGroup 15865 1 [anon_sym_LBRACK];
     AGroup 15867 1 [anon_sym_LPAREN]; AGroup 15871 1 [anon_sym_POUND];
     AGroup 15885 1 [sym_kSpecialize]; AGroup 15889 1 [sym_kIf]; AGroup 15891 1 [sym_kInherited];
     AGroup 17304 1 [sym_kString]; AGroup 3 2 syms_5; AGroup 15869 2 syms_6;
     AGroup 15873 2 syms_7; AGroup 15875 2 syms_8; AGroup 15877 2 syms_9; AGroup 15879 2 syms_10;
     AGroup 15887 2 syms_11; SGroup 8622 2 syms_12; SGroup 7298 3 syms_13; SGroup 8562 4 syms_14;
     AGroup 15881 5 syms_15; SGroup 8584 14 syms_17]);
   (189597, 20, [AGroup 5 1 [sym_ppDirective]; AGroup 16405 1 [anon_sym_LBRACK];
     AGroup 16407 1 [anon_sym_LPAREN]; AGroup 16411 1 [anon_sym_POUND];
     AGroup 16425 1 [sym_kSpecialize]; AGroup 16429 1 [sym_kIf]; AGroup 16431 1 [sym_kInherited];
     AGroup 18223 1 [sym_kString]; AGroup 3 2 syms_5; AGroup 16409 2 syms_6;
     AGroup 16413 2 syms_7; AGroup 16415 2 syms_8; AGroup 16417 2 syms_9; AGroup 16419 2 syms_10;
     AGroup 16427 2 syms_11; SGroup 9247 2 syms_12; SGroup 7508 3 syms_13; SGroup 9640 4 syms_14;
     AGroup 16421 5 syms_15; SGroup 8844 14 syms_17]);
   (189688, 20, [AGroup 5 1 [sym_ppDirective]; AGroup 15647 1 [anon_sym_LBRACK];
     AGroup 15653 1 [anon_sym_POUND]; AGroup 15667 1 [sym_kSpecialize];
     AGroup 15673 1 [sym_kInherited]; AGroup 15675 1 [sym_kString];
     AGroup 15745 1 [anon_sym_LPAREN]; AGroup 15755 1 [sym_kIf]; AGroup 3 2 syms_5;
     AGroup 15651 2 syms_6; AGroup 15655 2 syms_7; AGroup 15657 2 syms_8; AGroup 15669 2 syms_11;
     AGroup 15747 2 syms_9; AGroup 15749 2 syms_10; SGroup 8129 2 syms_12; SGroup 7100 3 syms_13;
     SGroup 9837 4 syms_14; AGroup 15751 5 syms_15; SGroup 8464 14 syms_17]);
   (189779, 20, [AGroup 5 1 [sym_ppDirective]; AGroup 15865 1 [anon_sym_LBRACK];
     AGroup 15867 1 [anon_sym_LPAREN]; AGroup 15871 1 [anon_sym_POUND];
     AGroup 15885 1 [sym_kSpecialize]; AGroup 15889 1 [sym_kIf]; AGroup 15891 1 [sym_kInherited];
     AGroup 17304 1 [sym_kString]; AGroup 3 2 syms_5; AGroup 15869 2 syms_6;
     AGroup 15873 2 syms_7; AGroup 15875 2 syms_8; AGroup 15877 2 syms_9; AGroup 15879 2 syms_10;
     AGroup 15887 2 syms_11; SGroup 8622 2 syms_12; SGroup 7298 3 syms_13; SGroup 8589 4 syms_14;
     AGroup 15881 5 syms_15; SGroup 8584 14 syms_17]);
   (189870, 20, [AGroup 5 1 [sym_ppDirective]; AGroup 15865 1 [anon_sym_LBRACK];
     AGroup 15867 1 [anon_sym_LPAREN]; AGroup 15871 1 [anon_sym_POUND];
     AGroup 15885 1 [sym_kSpecialize]; AGroup 15889 1 [sym_kIf]; AGroup 15891 1 [sym_kInherited];
     AGroup 17304 1 [sym_kString]; AGroup 3 2 syms_5; AGroup 15869 2 syms_6;
     AGroup 15873 2 syms_7; AGroup 15875 2 syms_8; AGroup 15877 2 syms_9; AGroup 15879 2 syms_10;
     AGroup 15887 2 syms_11; SGroup 8622 2 syms_12; SGroup 7298 3 syms_13; SGroup 8590 4 syms_14;
     AGroup 15881 5 syms_15; SGroup 8584 14 syms_17]);
   (189961, 20, [AGroup 5 1 [sym_ppDirective]; AGroup 15865 1 [anon_sym_LBRACK];
     AGroup 15867 1 [anon_sym_LPAREN]; AGroup 15871 1 [anon_sym_POUND];
     AGroup 15885 1 [sym_kSpecialize]; AGroup 15889 1 [sym_kIf]; AGroup 15891 1 [sym_kInherited];
     AGroup 17304 1 [sym_kString]; AGroup 3 2 syms_5; AGroup 15869 2 syms_6;
     AGroup 15873 2 syms_7; AGroup 15875 2 syms_8; AGroup 15877 2 syms_9; AGroup 15879 2 syms_10;
     AGroup 15887 2 syms_11; SGroup 8622 2 syms_12; SGroup 7298 3 syms_13; SGroup 8591 4 syms_14;
     AGroup 15881 5 syms_15; SGroup 8584 14 syms_17]);
   (190052, 20, [AGroup 5 1 [sym_ppDirective]; AGroup 15647 1 [anon_sym_LBRACK];
     AGroup 15653 1 [anon_sym_POUND]; AGroup 15667 1 [sym_kSpecialize];
     AGroup 15673 1 [sym_kInherited]; AGroup 15675 1 [sym_kString];
     AGroup 15745 1 [anon_sym_LPAREN]; AGroup 15755 1 [sym_kIf]; AGroup 3 2 syms_5;
     AGroup 15651 2 syms_6; AGroup 15655 2 syms_7; AGroup 15657 2 syms_8; AGroup 15669 2 syms_11;
     AGroup 15747 2 syms_9; AGroup 15749 2 syms_10; SGroup 8129 2 syms_12; SGroup 7100 3 syms_13;
     SGroup 10313 4 syms_14; AGroup 18354 5 syms_15; SGroup 9050 14 syms_17]);
   (190143, 20, [AGroup 5 1 [sym_ppDirective]; AGroup 15647 1 [anon_sym_LBRACK];
     AGroup 15653 1 [anon_sym_POUND]; AGroup 15667 1 [sym_kSpecialize];
     AGroup 15673 1 [sym_kInherited]; AGroup 15675 1 [sym_kString];
     AGroup 15745 1 [anon_sym_LPAREN]; AGroup 15755 1 [sym_kIf]; AGroup 3 2 syms_5;
     AGroup 15651 2 syms_6; AGroup 15655 2 syms_7; AGroup 15657 2 syms_8; AGroup 15669 2 syms_11;
     AGroup 15747 2 syms_9; AGroup 15749 2 syms_10; SGroup 8129 2 syms_12; SGroup 7100 3 syms_13;
     SGroup 10313 4 syms_14; AGroup 18356 5 syms_15; SGroup 9051 14 syms_17]);
   (190234, 21, [AGroup 5 1 [sym_ppDirective]; AGroup 15865 1 [anon_sym_LBRACK];
     AGroup 15867 1 [anon_sym_LPAREN]; AGroup 15871 1 [anon_sym_POUND]; AGroup 15879 1 [sym_kAt];
     AGroup 15885 1 [sym_kSpecialize]; AGroup 15889 1 [sym_kIf]; AGroup 15891 1 [sym_kInherited];
     AGroup 17304 1 [sym_kString]; AGroup 18358 1 [sym_kNot]; AGroup 3 2 syms_5;
     AGroup 15869 2 syms_6; AGroup 15873 2 syms_7; AGroup 15875 2 syms_8; AGroup 15877 2 syms_9;
     AGroup 15887 2 syms_11; SGroup 8622 2 syms_12; SGroup 7298 3 syms_13; SGroup 8591 4 syms_14;
     AGroup 15881 5 syms_15; SGroup 8584 14 syms_17]);
   (190327, 20, [AGroup 5 1 [sym_ppDirective]; AGroup 15865 1 [anon_sym_LBRACK];
     AGroup 15867 1 [anon_sym_LPAREN]; AGroup 15871 1 [anon_sym_POUND];
     AGroup 15885 1 [sym_kSpecialize]; AGroup 15889 1 [sym_kIf]; AGroup 15891 1 [sym_kInherited];
     AGroup 17304 1 [sym_kString]; AGroup 3 2 syms_5; AGroup 15869 2 syms_6;
     AGroup 15873 2 syms_7; AGroup 15875 2 syms_8; AGroup 15877 2 syms_9; AGroup 15879 2 syms_10;
     AGroup 15887 2 syms_11; SGroup 8622 2 syms_12; SGroup 7298 3 syms_13; SGroup 8593 4 syms_14;
     AGroup 15881 5 syms_15; SGroup 8584 14 syms_17]);
   (190418, 20, [AGroup 5 1 [sym_ppDirective]; AGroup 927 1 [anon_sym_LBRACK];
     AGroup 929 1 [anon_sym_LPAREN]; AGroup 933 1 [anon_sym_POUND];
     AGroup 949 1 [sym_kSpecialize]; AGroup 967 1 [sym_kInherited]; AGroup 973 1 [sym_kString];
     AGroup 15586 1 [sym_kIf]; AGroup 3 2 syms_5; AGroup 931 2 syms_6; AGroup 935 2 syms_7;
     AGroup 937 2 syms_8; AGroup 939 2 syms_9; AGroup 941 2 syms_10; AGroup 961 2 syms_11;
     SGroup 7570 2 syms_12; SGroup 6915 3 syms_13; SGroup 7403 4 syms_14; AGroup 943 5 syms_15;
     SGroup 7533 14 syms_17]);
   (190509, 20, [AGroup 5 1 [sym_ppDirective]; AGroup 15755 1 [sym_kIf]; AGroup 15865 1 [anon_sym_LBRACK];
     AGroup 15867 1 [anon_sym_LPAREN]; AGroup 15871 1 [anon_sym_POUND];
     AGroup 15885 1 [sym_kSpecialize]; AGroup 15891 1 [sym_kInherited];
     AGroup 17304 1 [sym_kString]; AGroup 3 2 syms_5; AGroup 15747 2 syms_9;
     AGroup 15749 2 syms_10; AGroup 15869 2 syms_6; AGroup 15873 2 syms_7; AGroup 15875 2 syms_8;
     AGroup 15887 2 syms_11; SGroup 8622 2 syms_12; SGroup 7298 3 syms_13;
     SGroup 10288 4 syms_14; AGroup 18360 5 syms_15; SGroup 8595 14 syms_17]);
   (190600, 20, [AGroup 5 1 [sym_ppDirective]; AGroup 15865 1 [anon_sym_LBRACK];
     AGroup 15867 1 [anon_sym_LPAREN]; AGroup 15871 1 [anon_sym_POUND];
     AGroup 15885 1 [sym_kSpecialize]; AGroup 15889 1 [sym_kIf]; AGroup 15891 1 [sym_kInherited];
     AGroup 17304 1 [sym_kString]; AGroup 3 2 syms_5; AGroup 15869 2 syms_6;
     AGroup 15873 2 syms_7; AGroup 15875 2 syms_8; AGroup 15877 2 syms_9; AGroup 15879 2 syms_10;
     AGroup 15887 2 syms_11; SGroup 8622 2 syms_12; SGroup 7298 3 syms_13; SGroup 8597 4 syms_14;
     AGroup 15881 5 syms_15; SGroup 8584 14 syms_17]);
   (190691, 20, [AGroup 5 1 [sym_ppDirective]; AGroup 15647 1 [anon_sym_LBRACK];
     AGroup 15653 1 [anon_sym_POUND]; AGroup 15667 1 [sym_kSpecialize];
     AGroup 15673 1 [sym_kInherited]; AGroup 15675 1 [sym_kString];
     AGroup 15745 1 [anon_sym_LPAREN]; AGroup 15755 1 [sym_kIf]; AGroup 3 2 syms_5;
     AGroup 15651 2 syms_6; AGroup 15655 2 syms_7; AGroup 15657 2 syms_8; AGroup 15669 2 syms_11;
     AGroup 15747 2 syms_9; AGroup 15749 2 syms_10; SGroup 8129 2 syms_12; SGroup 7100 3 syms_13;
     SGroup 10313 4 syms_14; AGroup 18362 5 syms_15; SGroup 9052 14 syms_17]);
   (190782, 20, [AGroup 5 1 [sym_ppDirective]; AGroup 15647 1 [anon_sym_LBRACK];
     AGroup 15653 1 [anon_sym_POUND]; AGroup 15667 1 [sym_kSpecialize];
     AGroup 15673 1 [sym_kInherited]; AGroup 15675 1 [sym_kString];
     AGroup 15745 1 [anon_sym_LPAREN]; AGroup 15755 1 [sym_kIf]; AGroup 3 2 syms_5;
     AGroup 15651 2 syms_6; AGroup 15655 2 syms_7; AGroup 15657 2 syms_8; AGroup 15669 2 syms_11;
     AGroup 15747 2 syms_9; AGroup 15749 2 syms_10; SGroup 8129 2 syms_12; SGroup 7100 3 syms_13;
     SGroup 10313 4 syms_14; AGroup 18364 5 syms_15; SGroup 9053 14 syms_17]);
   (190873, 20, [AGroup 5 1 [sym_ppDirective]; AGroup 15647 1 [anon_sym_LBRACK];
     AGroup 15653 1 [anon_sym_POUND]; AGroup 15667 1 [sym_kSpecialize];
     AGroup 15673 1 [sym_kInherited]; AGroup 15675 1 [sym_kString];
     AGroup 15745 1 [anon_sym_LPAREN]; AGroup 15755 1 [sym_kIf]; AGroup 3 2 syms_5;
     AGroup 15651 2 syms_6; AGroup 15655 2 syms_7; AGroup 15657 2 syms_8; AGroup 15669 2 syms_11;
     AGroup 15747 2 syms_9; AGroup 15749 2 syms_10; SGroup 8129 2 syms_12; SGroup 7100 3 syms_13;
     SGroup 10313 4 syms_14; AGroup 18366 5 syms_15; SGroup 9054 14 syms_17]);
   (190964, 20, [AGroup 5 1 [sym_ppDirective]; AGroup 15647 1 [anon_sym_LBRACK];
     AGroup 15653 1 [anon_sym_POUND]; AGroup 15667 1 [sym_kSpecialize];
     AGroup 15673 1 [sym_kInherited]; AGroup 15675 1 [sym_kString];
     AGroup 15745 1 [anon_sym_LPAREN]; AGroup 15755 1 [sym_kIf]; AGroup 3 2 syms_5;
     AGroup 15651 2 syms_6; AGroup 15655 2 syms_7; AGroup 15657 2 syms_8; AGroup 15669 2 syms_11;
     AGroup 15747 2 syms_9; AGroup 15749 2 syms_10; SGroup 8129 2 syms_12; SGroup 7100 3 syms_13;
     SGroup 10313 4 syms_14; AGroup 18368 5 syms_15; SGroup 9055 14 syms_17]);
   (191055, 20, [AGroup 5 1 [sym_ppDirective]; AGroup 15647 1 [anon_sym_LBRACK];
     AGroup 15653 1 [anon_sym_POUND]; AGroup 15667 1 [sym_kSpecialize];
     AGroup 15673 1 [sym_kInherited]; AGroup 15675 1 [sym_kString];
     AGroup 15745 1 [anon_sym_LPAREN]; AGroup 15755 1 [sym_kIf]; AGroup 3 2 syms_5;
     AGroup 15651 2 syms_6; AGroup 15655 2 syms_7; AGroup 15657 2 syms_8; AGroup 15669 2 syms_11;
     AGroup 15747 2 syms_9; AGroup 15749 2 syms_10; SGroup 8129 2 syms_12; SGroup 7100 3 syms_13;
     SGroup 10313 4 syms_14; AGroup 18370 5 syms_15; SGroup 9057 14 syms_17]);
   (191146, 20, [AGroup 5 1 [sym_ppDirective]; AGroup 15647 1 [anon_sym_LBRACK];
     AGroup 15653 1 [anon_sym_POUND]; AGroup 15667 1 [sym_kSpecialize];
     AGroup 15673 1 [sym_kInherited]; AGroup 15675 1 [sym_kString];
     AGroup 15745 1 [anon_sym_LPAREN]; AGroup 15755 1 [sym_kIf]; AGroup 3 2 syms_5;
     AGroup 15651 2 syms_6; AGroup 15655 2 syms_7; AGroup 15657 2 syms_8; AGroup 15669 2 syms_11;
     AGroup 15747 2 syms_9; AGroup 15749 2 syms_10; SGroup 8129 2 syms_12; SGroup 7100 3 syms_13;
     SGroup 10313 4 syms_14; AGroup 18372 5 syms_15; SGroup 9059 14 syms_17]);
   (191237, 20, [AGroup 5 1 [sym_ppDirective]; AGroup 15987 1 [anon_sym_LBRACK];
     AGroup 15989 1 [anon_sym_LPAREN]; AGroup 15993 1 [anon_sym_POUND];
     AGroup 16007 1 [sym_kSpecialize]; AGroup 16011 1 [sym_kIf]; AGroup 16013 1 [sym_kInherited];
     AGroup 18254 1 [sym_kString]; AGroup 3 2 syms_5; AGroup 15991 2 syms_6;
     AGroup 15995 2 syms_7; AGroup 15997 2 syms_8; AGroup 15999 2 syms_9; AGroup 16001 2 syms_10;
     AGroup 16009 2 syms_11; SGroup 9525 2 syms_12; SGroup 7769 3 syms_13;
     SGroup 10013 4 syms_14; AGroup 16003 5 syms_15; SGroup 9072 14 syms_17]);
   (191328, 20, [AGroup 5 1 [sym_ppDirective]; AGroup 15761 1 [anon_sym_LBRACK];
     AGroup 15763 1 [anon_sym_LPAREN]; AGroup 15767 1 [anon_sym_POUND];
     AGroup 15781 1 [sym_kSpecialize]; AGroup 15787 1 [sym_kInherited]; AGroup 16229 1 [sym_kIf];
     AGroup 17864 1 [sym_kString]; AGroup 3 2 syms_5; AGroup 15765 2 syms_6;
     AGroup 15769 2 syms_7; AGroup 15771 2 syms_8; AGroup 15783 2 syms_11; AGroup 16221 2 syms_9;
     AGroup 16223 2 syms_10; SGroup 9180 2 syms_12; SGroup 7467 3 syms_13;
     SGroup 10018 4 syms_14; AGroup 16225 5 syms_15; SGroup 9076 14 syms_17]);
   (191419, 20, [AGroup 5 1 [sym_ppDirective]; AGroup 15755 1 [sym_kIf]; AGroup 16131 1 [anon_sym_LBRACK];
     AGroup 16133 1 [anon_sym_LPAREN]; AGroup 16137 1 [anon_sym_POUND];
     AGroup 16151 1 [sym_kSpecialize]; AGroup 16157 1 [sym_kInherited];
     AGroup 17420 1 [sym_kString]; AGroup 3 2 syms_5; AGroup 15747 2 syms_9;
     AGroup 15749 2 syms_10; AGroup 16135 2 syms_6; AGroup 16139 2 syms_7; AGroup 16141 2 syms_8;
     AGroup 16153 2 syms_11; SGroup 8630 2 syms_12; SGroup 7260 3 syms_13;
     SGroup 10322 4 syms_14; AGroup 18374 5 syms_15; SGroup 8501 14 syms_17]);
   (191510, 20, [AGroup 5 1 [sym_ppDirective]; AGroup 15647 1 [anon_sym_LBRACK];
     AGroup 15653 1 [anon_sym_POUND]; AGroup 15667 1 [sym_kSpecialize];
     AGroup 15673 1 [sym_kInherited]; AGroup 15675 1 [sym_kString];
     AGroup 15745 1 [anon_sym_LPAREN]; AGroup 15755 1 [sym_kIf]; AGroup 3 2 syms_5;
     AGroup 15651 2 syms_6; AGroup 15655 2 syms_7; AGroup 15657 2 syms_8; AGroup 15669 2 syms_11;
     AGroup 15747 2 syms_9; AGroup 15749 2 syms_10; SGroup 8129 2 syms_12; SGroup 7100 3 syms_13;
     SGroup 10037 4 syms_14; AGroup 15751 5 syms_15; SGroup 8464 14 syms_17]);
   (191601, 20, [AGroup 5 1 [sym_ppDirective]; AGroup 15865 1 [anon_sym_LBRACK];
     AGroup 15867 1 [anon_sym_LPAREN]; AGroup 15871 1 [anon_sym_POUND];
     AGroup 15885 1 [sym_kSpecialize]; AGroup 15889 1 [sym_kIf]; AGroup 15891 1 [sym_kInherited];
     AGroup 17304 1 [sym_kString]; AGroup 3 2 syms_5; AGroup 15869 2 syms_6;
     AGroup 15873 2 syms_7; AGroup 15875 2 syms_8; AGroup 15877 2 syms_9; AGroup 15879 2 syms_10;
     AGroup 15887 2 syms_11; SGroup 8622 2 syms_12; SGroup 7298 3 syms_13; SGroup 8566 4 syms_14;
     AGroup 15881 5 syms_15; SGroup 8584 14 syms_17]);
   (191692, 20, [AGroup 5 1 [sym_ppDirective]; AGroup 609 1 [anon_sym_LBRACK];
     AGroup 611 1 [anon_sym_LPAREN]; AGroup 615 1 [anon_sym_POUND];
     AGroup 631 1 [sym_kSpecialize]; AGroup 651 1 [sym_kInherited]; AGroup 657 1 [sym_kString];
     AGroup 14951 1 [sym_kIf]; AGroup 3 2 syms_5; AGroup 613 2 syms_6; AGroup 617 2 syms_7;
     AGroup 619 2 syms_8; AGroup 621 2 syms_9; AGroup 623 2 syms_10; AGroup 645 2 syms_11;
     SGroup 7084 2 syms_12; SGroup 6066 3 syms_13; SGroup 7020 4 syms_14; AGroup 625 5 syms_15;
     SGroup 7013 14 syms_17]);
   (191783, 20, [AGroup 5 1 [sym_ppDirective]; AGroup 15647 1 [anon_sym_LBRACK];
     AGroup 15653 1 [anon_sym_POUND]; AGroup 15667 1 [sym_kSpecialize];
     AGroup 15673 1 [sym_kInherited]; AGroup 15675 1 [sym_kString];
     AGroup 15745 1 [anon_sym_LPAREN]; AGroup 15755 1 [sym_kIf]; AGroup 3 2 syms_5;
     AGroup 15651 2 syms_6; AGroup 15655 2 syms_7; AGroup 15657 2 syms_8; AGroup 15669 2 syms_11;
     AGroup 15747 2 syms_9; AGroup 15749 2 syms_10; SGroup 8129 2 syms_12; SGroup 7100 3 syms_13;
     SGroup 10141 4 syms_14; AGroup 15751 5 syms_15; SGroup 8464 14 syms_17]);
   (191874, 20, [AGroup 5 1 [sym_ppDirective]; AGroup 15647 1 [anon_sym_LBRACK];
     AGroup 15653 1 [anon_sym_POUND]; AGroup 15667 1 [sym_kSpecialize];
     AGroup 15673 1 [sym_kInherited]; AGroup 15675 1 [sym_kString];
     AGroup 15745 1 [anon_sym_LPAREN]; AGroup 15755 1 [sym_kIf]; AGroup 3 2 syms_5;
     AGroup 15651 2 syms_6; AGroup 15655 2 syms_7; AGroup 15657 2 syms_8; AGroup 15669 2 syms_11;
     AGroup 15747 2 syms_9; AGroup 15749 2 syms_10; SGroup 8129 2 syms_12; SGroup 7100 3 syms_13;
     SGroup 10313 4 syms_14; AGroup 18376 5 syms_15; SGroup 9378 14 syms_17]);
   (191965, 20, [AGroup 5 1 [sym_ppDirective]; AGroup 16405 1 [anon_sym_LBRACK];
     AGroup 16407 1 [anon_sym_LPAREN]; AGroup 16411 1 [anon_sym_POUND];
     AGroup 16425 1 [sym_kSpecialize]; AGroup 16429 1 [sym_kIf]; AGroup 16431 1 [sym_kInherited];
     AGroup 18223 1 [sym_kString]; AGroup 3 2 syms_5; AGroup 16409 2 syms_6;
     AGroup 16413 2 syms_7; AGroup 16415 2 syms_8; AGroup 16417 2 syms_9; AGroup 16419 2 syms_10;
     AGroup 16427 2 syms_11; SGroup 9247 2 syms_12; SGroup 7508 3 syms_13; SGroup 9699 4 syms_14;
     AGroup 16421 5 syms_15; SGroup 8844 14 syms_17]);
   (192056, 20, [AGroup 5 1 [sym_ppDirective]; AGroup 16131 1 [anon_sym_LBRACK];
     AGroup 16133 1 [anon_sym_LPAREN]; AGroup 16137 1 [anon_sym_POUND];
     AGroup 16151 1 [sym_kSpecialize]; AGroup 16155 1 [sym_kIf]; AGroup 16157 1 [sym_kInherited];
     AGroup 17420 1 [sym_kString]; AGroup 3 2 syms_5; AGroup 16135 2 syms_6;
     AGroup 16139 2 syms_7; AGroup 16141 2 syms_8; AGroup 16143 2 syms_9; AGroup 16145 2 syms_10;
     AGroup 16153 2 syms_11; SGroup 8630 2 syms_12; SGroup 7260 3 syms_13; SGroup 8504 4 syms_14;
     AGroup 16147 5 syms_15; SGroup 8446 14 syms_17]);
   (192147, 20, [AGroup 5 1 [sym_ppDirective]; AGroup 15761 1 [anon_sym_LBRACK];
     AGroup 15763 1 [anon_sym_LPAREN]; AGroup 15767 1 [anon_sym_POUND];
     AGroup 15781 1 [sym_kSpecialize]; AGroup 15787 1 [sym_kInherited]; AGroup 16229 1 [sym_kIf];
     AGroup 17864 1 [sym_kString]; AGroup 3 2 syms_5; AGroup 15765 2 syms_6;
     AGroup 15769 2 syms_7; AGroup 15771 2 syms_8; AGroup 15783 2 syms_11; AGroup 16221 2 syms_9;
     AGroup 16223 2 syms_10; SGroup 9180 2 syms_12; SGroup 7467 3 syms_13;
     SGroup 10208 4 syms_14; AGroup 16225 5 syms_15; SGroup 9076 14 syms_17]);
   (192238, 20, [AGroup 5 1 [sym_ppDirective]; AGroup 15761 1 [anon_sym_LBRACK];
     AGroup 15763 1 [anon_sym_LPAREN]; AGroup 15767 1 [anon_sym_POUND];
     AGroup 15781 1 [sym_kSpecialize]; AGroup 15787 1 [sym_kInherited]; AGroup 16229 1 [sym_kIf];
     AGroup 17864 1 [sym_kString]; AGroup 3 2 syms_5; AGroup 15765 2 syms_6;
     AGroup 15769 2 syms_7; AGroup 15771 2 syms_8; AGroup 15783 2 syms_11; AGroup 16221 2 syms_9;
     AGroup 16223 2 syms_10; SGroup 9180 2 syms_12; SGroup 7467 3 syms_13;
     SGroup 10214 4 syms_14; AGroup 16225 5 syms_15; SGroup 9076 14 syms_17]);
   (192329, 20, [AGroup 5 1 [sym_ppDirective]; AGroup 16715 1 [anon_sym_LBRACK];
     AGroup 16717 1 [anon_sym_LPAREN]; AGroup 16721 1 [anon_sym_POUND];
     AGroup 16735 1 [sym_kSpecialize]; AGroup 16739 1 [sym_kIf]; AGroup 16741 1 [sym_kInherited];
     AGroup 18201 1 [sym_kString]; AGroup 3 2 syms_5; AGroup 16719 2 syms_6;
     AGroup 16723 2 syms_7; AGroup 16725 2 syms_8; AGroup 16727 2 syms_9; AGroup 16729 2 syms_10;
     AGroup 16737 2 syms_11; SGroup 7901 2 syms_12; SGroup 7014 3 syms_13; SGroup 8311 4 syms_14;
     AGroup 16731 5 syms_15; SGroup 7757 14 syms_17]);
   (192420, 20, [AGroup 5 1 [sym_ppDirective]; AGroup 47 1 [anon_sym_LPAREN]; AGroup 51 1 [anon_sym_POUND];
     AGroup 73 1 [sym_kSpecialize]; AGroup 105 1 [sym_kInherited]; AGroup 117 1 [sym_kString];
     AGroup 11060 1 [anon_sym_LBRACK]; AGroup 15755 1 [sym_kIf]; AGroup 3 2 syms_5;
     AGroup 49 2 syms_6; AGroup 53 2 syms_7; AGroup 55 2 syms_8; AGroup 11080 2 syms_11;
     AGroup 15747 2 syms_9; AGroup 15749 2 syms_10; SGroup 7888 2 syms_12; SGroup 6994 3 syms_13;
     SGroup 10340 4 syms_14; AGroup 18378 5 syms_15; SGroup 7701 14 syms_17]);
   (192511, 20, [AGroup 5 1 [sym_ppDirective]; AGroup 609 1 [anon_sym_LBRACK];
     AGroup 611 1 [anon_sym_LPAREN]; AGroup 615 1 [anon_sym_POUND];
     AGroup 631 1 [sym_kSpecialize]; AGroup 651 1 [sym_kInherited]; AGroup 657 1 [sym_kString];
     AGroup 14951 1 [sym_kIf]; AGroup 3 2 syms_5; AGroup 613 2 syms_6; AGroup 617 2 syms_7;
     AGroup 619 2 syms_8; AGroup 621 2 syms_9; AGroup 623 2 syms_10; AGroup 645 2 syms_11;
     SGroup 7084 2 syms_12; SGroup 6066 3 syms_13; SGroup 6998 4 syms_14; AGroup 625 5 syms_15;
     SGroup 7013 14 syms_17]);
   (192602, 20, [AGroup 5 1 [sym_ppDirective]; AGroup 609 1 [anon_sym_LBRACK];
     AGroup 611 1 [anon_sym_LPAREN]; AGroup 615 1 [anon_sym_POUND];
     AGroup 631 1 [sym_kSpecialize]; AGroup 651 1 [sym_kInherited]; AGroup 657 1 [sym_kString];
     AGroup 14951 1 [sym_kIf]; AGroup 3 2 syms_5; AGroup 613 2 syms_6; AGroup 617 2 syms_7;
     AGroup 619 2 syms_8; AGroup 621 2 syms_9; AGroup 623 2 syms_10; AGroup 645 2 syms_11;
     SGroup 7084 2 syms_12; SGroup 6066 3 syms_13; SGroup 7000 4 syms_14; AGroup 625 5 syms_15;
     SGroup 7013 14 syms_17]);
   (192693, 20, [AGroup 5 1 [sym_ppDirective]; AGroup 609 1 [anon_sym_LBRACK];
     AGroup 611 1 [anon_sym_LPAREN]; AGroup 615 1 [anon_sym_POUND];
     AGroup 631 1 [sym_kSpecialize]; AGroup 651 1 [sym_kInherited]; AGroup 657 1 [sym_kString];
     AGroup 14951 1 [sym_kIf]; AGroup 3 2 syms_5; AGroup 613 2 syms_6; AGroup 617 2 syms_7;
     AGroup 619 2 syms_8; AGroup 621 2 syms_9; AGroup 623 2 syms_10; AGroup 645 2 syms_11;
     SGroup 7084 2 syms_12; SGroup 6066 3 syms_13; SGroup 7004 4 syms_14; AGroup 625 5 syms_15;
     SGroup 7013 14 syms_17]);
   (192784, 20, [AGroup 5 1 [sym_ppDirective]; AGroup 15831 1 [anon_sym_LBRACK];
     AGroup 15833 1 [anon_sym_LPAREN]; AGroup 15837 1 [anon_sym_POUND];
     AGroup 15851 1 [sym_kSpecialize]; AGroup 15855 1 [sym_kIf]; AGroup 15857 1 [sym_kInherited];
     AGroup 17312 1 [sym_kString]; AGroup 3 2 syms_5; AGroup 15835 2 syms_6;
     AGroup 15839 2 syms_7; AGroup 15841 2 syms_8; AGroup 15843 2 syms_9; AGroup 15845 2 syms_10;
     AGroup 15853 2 syms_11; SGroup 9267 2 syms_12; SGroup 7556 3 syms_13; SGroup 9828 4 syms_14;
     AGroup 15847 5 syms_15; SGroup 8649 14 syms_17]);
   (192875, 21, [AGroup 5 1 [sym_ppDirective]; AGroup 609 1 [anon_sym_LBRACK];
     AGroup 611 1 [anon_sym_LPAREN]; AGroup 615 1 [anon_sym_POUND]; AGroup 623 1 [sym_kAt];
     AGroup 631 1 [sym_kSpecialize]; AGroup 651 1 [sym_kInherited]; AGroup 657 1 [sym_kString];
     AGroup 14951 1 [sym_kIf]; AGroup 18380 1 [sym_kNot]; AGroup 3 2 syms_5; AGroup 613 2 syms_6;
     AGroup 617 2 syms_7; AGroup 619 2 syms_8; AGroup 621 2 syms_9; AGroup 645 2 syms_11;
     SGroup 7084 2 syms_12; SGroup 6066 3 syms_13; SGroup 7004 4 syms_14; AGroup 625 5 syms_15;
     SGroup 7013 14 syms_17]);
   (192968, 20, [AGroup 5 1 [sym_ppDirective]; AGroup 15647 1 [anon_sym_LBRACK];
     AGroup 15653 1 [anon_sym_POUND]; AGroup 15667 1 [sym_kSpecialize];
     AGroup 15673 1 [sym_kInherited]; AGroup 15675 1 [sym_kString];
     AGroup 15745 1 [anon_sym_LPAREN]; AGroup 15755 1 [sym_kIf]; AGroup 3 2 syms_5;
     AGroup 15651 2 syms_6; AGroup 15655 2 syms_7; AGroup 15657 2 syms_8; AGroup 15669 2 syms_11;
     AGroup 15747 2 syms_9; AGroup 15749 2 syms_10; SGroup 8129 2 syms_12; SGroup 7100 3 syms_13;
     SGroup 9829 4 syms_14; AGroup 15751 5 syms_15; SGroup 8464 14 syms_17]);
   (193059, 20, [AGroup 5 1 [sym_ppDirective]; AGroup 15647 1 [anon_sym_LBRACK];
     AGroup 15653 1 [anon_sym_POUND]; AGroup 15667 1 [sym_kSpecialize];
     AGroup 15673 1 [sym_kInherited]; AGroup 15675 1 [sym_kString];
     AGroup 15745 1 [anon_sym_LPAREN]; AGroup 15755 1 [sym_kIf]; AGroup 3 2 syms_5;
     AGroup 15651 2 syms_6; AGroup 15655 2 syms_7; AGroup 15657 2 syms_8; AGroup 15669 2 syms_11;
     AGroup 15747 2 syms_9; AGroup 15749 2 syms_10; SGroup 8129 2 syms_12; SGroup 7100 3 syms_13;
     SGroup 9836 4 syms_14; AGroup 15751 5 syms_15; SGroup 8464 14 syms_17]);
   (193150, 20, [AGroup 5 1 [sym_ppDirective]; AGroup 609 1 [anon_sym_LBRACK];
     AGroup 611 1 [anon_sym_LPAREN]; AGroup 615 1 [anon_sym_POUND];
     AGroup 631 1 [sym_kSpecialize]; AGroup 651 1 [sym_kInherited]; AGroup 657 1 [sym_kString];
     AGroup 14951 1 [sym_kIf]; AGroup 3 2 syms_5; AGroup 613 2 syms_6; AGroup 617 2 syms_7;
     AGroup 619 2 syms_8; AGroup 621 2 syms_9; AGroup 623 2 syms_10; AGroup 645 2 syms_11;
     SGroup 7084 2 syms_12; SGroup 6066 3 syms_13; SGroup 7005 4 syms_14; AGroup 625 5 syms_15;
     SGroup 7013 14 syms_17]);
   (193241, 20, [AGroup 5 1 [sym_ppDirective]; AGroup 16405 1 [anon_sym_LBRACK];
     AGroup 16407 1 [anon_sym_LPAREN]; AGroup 16411 1 [anon_sym_POUND];
     AGroup 16425 1 [sym_kSpecialize]; AGroup 16429 1 [sym_kIf]; AGroup 16431 1 [sym_kInherited];
     AGroup 18223 1 [sym_kString]; AGroup 3 2 syms_5; AGroup 16409 2 syms_6;
     AGroup 16413 2 syms_7; AGroup 16415 2 syms_8; AGroup 16417 2 syms_9; AGroup 16419 2 syms_10;
     AGroup 16427 2 syms_11; SGroup 9247 2 syms_12; SGroup 7508 3 syms_13; SGroup 9802 4 syms_14;
     AGroup 16421 5 syms_15; SGroup 8844 14 syms_17])
  ].

(** States 4859 to 4958. *)
Definition small_runs_4859 : list small_run :=
  [
   (193332, 20, [AGroup 5 1 [sym_ppDirective]; AGroup 15647 1 [anon_sym_LBRACK];
     AGroup 15653 1 [anon_sym_POUND]; AGroup 15667 1 [sym_kSpecialize];
     AGroup 15673 1 [sym_kInherited]; AGroup 15675 1 [sym_kString];
     AGroup 15745 1 [anon_sym_LPAREN]; AGroup 15755 1 [sym_kIf]; AGroup 3 2 syms_5;
     AGroup 15651 2 syms_6; AGroup 15655 2 syms_7; AGroup 15657 2 syms_8; AGroup 15669 2 syms_11;
     AGroup 15747 2 syms_9; AGroup 15749 2 syms_10; SGroup 8129 2 syms_12; SGroup 7100 3 syms_13;
     SGroup 9838 4 syms_14; AGroup 15751 5 syms_15; SGroup 8464 14 syms_17]);
   (193423, 20, [AGroup 5 1 [sym_ppDirective]; AGroup 609 1 [anon_sym_LBRACK];
     AGroup 611 1 [anon_sym_LPAREN]; AGroup 615 1 [anon_sym_POUND];
     AGroup 631 1 [sym_kSpecialize]; AGroup 651 1 [sym_kInherited]; AGroup 657 1 [sym_kString];
     AGroup 15755 1 [sym_kIf]; AGroup 3 2 syms_5; AGroup 613 2 syms_6; AGroup 617 2 syms_7;
     AGroup 619 2 syms_8; AGroup 645 2 syms_11; AGroup 15747 2 syms_9; AGroup 15749 2 syms_10;
     SGroup 7084 2 syms_12; SGroup 6066 3 syms_13; SGroup 10320 4 syms_14;
     AGroup 18382 5 syms_15; SGroup 7010 14 syms_17]);
   (193514, 20, [AGroup 5 1 [sym_ppDirective]; AGroup 15647 1 [anon_sym_LBRACK];
     AGroup 15653 1 [anon_sym_POUND]; AGroup 15667 1 [sym_kSpecialize];
     AGroup 15673 1 [sym_kInherited]; AGroup 15675 1 [sym_kString];
     AGroup 15745 1 [anon_sym_LPAREN]; AGroup 15755 1 [sym_kIf]; AGroup 3 2 syms_5;
     AGroup 15651 2 syms_6; AGroup 15655 2 syms_7; AGroup 15657 2 syms_8; AGroup 15669 2 syms_11;
     AGroup 15747 2 syms_9; AGroup 15749 2 syms_10; SGroup 8129 2 syms_12; SGroup 7100 3 syms_13;
     SGroup 10313 4 syms_14; AGroup 18384 5 syms_15; SGroup 9084 14 syms_17]);
   (193605, 20, [AGroup 5 1 [sym_ppDirective]; AGroup 15647 1 [anon_sym_LBRACK];
     AGroup 15653 1 [anon_sym_POUND]; AGroup 15667 1 [sym_kSpecialize];
     AGroup 15673 1 [sym_kInherited]; AGroup 15675 1 [sym_kString];
     AGroup 15745 1 [anon_sym_LPAREN]; AGroup 15755 1 [sym_kIf]; AGroup 3 2 syms_5;
     AGroup 15651 2 syms_6; AGroup 15655 2 syms_7; AGroup 15657 2 syms_8; AGroup 15669 2 syms_11;
     AGroup 15747 2 syms_9; AGroup 15749 2 syms_10; SGroup 8129 2 syms_12; SGroup 7100 3 syms_13;
     SGroup 10313 4 syms_14; AGroup 18386 5 syms_15; SGroup 9085 14 syms_17]);
   (193696, 20, [AGroup 5 1 [sym_ppDirective]; AGroup 15647 1 [anon_sym_LBRACK];
     AGroup 15653 1 [anon_sym_POUND]; AGroup 15667 1 [sym_kSpecialize]; AGroup 15671 1 [sym_kIf];
     AGroup 15673 1 [sym_kInherited]; AGroup 15675 1 [sym_kString];
     AGroup 15745 1 [anon_sym_LPAREN]; AGroup 3 2 syms_5; AGroup 15651 2 syms_6;
     AGroup 15655 2 syms_7; AGroup 15657 2 syms_8; AGroup 15659 2 syms_9; AGroup 15661 2 syms_10;
     AGroup 15669 2 syms_11; SGroup 8129 2 syms_12; SGroup 7100 3 syms_13; SGroup 9595 4 syms_14;
     AGroup 15663 5 syms_15; SGroup 7786 14 syms_17]);
   (193787, 20, [AGroup 5 1 [sym_ppDirective]; AGroup 15647 1 [anon_sym_LBRACK];
     AGroup 15653 1 [anon_sym_POUND]; AGroup 15667 1 [sym_kSpecialize];
     AGroup 15673 1 [sym_kInherited]; AGroup 15675 1 [sym_kString];
     AGroup 15745 1 [anon_sym_LPAREN]; AGroup 15755 1 [sym_kIf]; AGroup 3 2 syms_5;
     AGroup 15651 2 syms_6; AGroup 15655 2 syms_7; AGroup 15657 2 syms_8; AGroup 15669 2 syms_11;
     AGroup 15747 2 syms_9; AGroup 15749 2 syms_10; SGroup 8129 2 syms_12; SGroup 7100 3 syms_13;
     SGroup 10313 4 syms_14; AGroup 18388 5 syms_15; SGroup 9382 14 syms_17]);
   (193878, 20, [AGroup 5 1 [sym_ppDirective]; AGroup 15647 1 [anon_sym_LBRACK];
     AGroup 15653 1 [anon_sym_POUND]; AGroup 15667 1 [sym_kSpecialize];
     AGroup 15673 1 [sym_kInherited]; AGroup 15675 1 [sym_kString];
     AGroup 15745 1 [anon_sym_LPAREN]; AGroup 15755 1 [sym_kIf]; AGroup 3 2 syms_5;
     AGroup 15651 2 syms_6; AGroup 15655 2 syms_7; AGroup 15657 2 syms_8; AGroup 15669 2 syms_11;
     AGroup 15747 2 syms_9; AGroup 15749 2 syms_10; SGroup 8129 2 syms_12; SGroup 7100 3 syms_13;
     SGroup 10313 4 syms_14; AGroup 18390 5 syms_15; SGroup 9092 14 syms_17]);
   (193969, 20, [AGroup 5 1 [sym_ppDirective]; AGroup 15647 1 [anon_sym_LBRACK];
     AGroup 15653 1 [anon_sym_POUND]; AGroup 15667 1 [sym_kSpecialize];
     AGroup 15673 1 [sym_kInherited]; AGroup 15675 1 [sym_kString];
     AGroup 15745 1 [anon_sym_LPAREN]; AGroup 15755 1 [sym_kIf]; AGroup 3 2 syms_5;
     AGroup 15651 2 syms_6; AGroup 15655 2 syms_7; AGroup 15657 2 syms_8; AGroup 15669 2 syms_11;
     AGroup 15747 2 syms_9; AGroup 15749 2 syms_10; SGroup 8129 2 syms_12; SGroup 7100 3 syms_13;
     SGroup 10313 4 syms_14; AGroup 18392 5 syms_15; SGroup 9093 14 syms_17]);
   (194060, 20, [AGroup 5 1 [sym_ppDirective]; AGroup 15647 1 [anon_sym_LBRACK];
     AGroup 15653 1 [anon_sym_POUND]; AGroup 15667 1 [sym_kSpecialize];
     AGroup 15673 1 [sym_kInherited]; AGroup 15675 1 [sym_kString];
     AGroup 15745 1 [anon_sym_LPAREN]; AGroup 15755 1 [sym_kIf]; AGroup 3 2 syms_5;
     AGroup 15651 2 syms_6; AGroup 15655 2 syms_7; AGroup 15657 2 syms_8; AGroup 15669 2 syms_11;
     AGroup 15747 2 syms_9; AGroup 15749 2 syms_10; SGroup 8129 2 syms_12; SGroup 7100 3 syms_13;
     SGroup 10313 4 syms_14; AGroup 18394 5 syms_15; SGroup 9094 14 syms_17]);
   (194151, 20, [AGroup 5 1 [sym_ppDirective]; AGroup 15647 1 [anon_sym_LBRACK];
     AGroup 15653 1 [anon_sym_POUND]; AGroup 15667 1 [sym_kSpecialize];
     AGroup 15673 1 [sym_kInherited]; AGroup 15675 1 [sym_kString];
     AGroup 15745 1 [anon_sym_LPAREN]; AGroup 15755 1 [sym_kIf]; AGroup 3 2 syms_5;
     AGroup 15651 2 syms_6; AGroup 15655 2 syms_7; AGroup 15657 2 syms_8; AGroup 15669 2 syms_11;
     AGroup 15747 2 syms_9; AGroup 15749 2 syms_10; SGroup 8129 2 syms_12; SGroup 7100 3 syms_13;
     SGroup 10313 4 syms_14; AGroup 18396 5 syms_15; SGroup 9095 14 syms_17]);
   (194242, 20, [AGroup 5 1 [sym_ppDirective]; AGroup 15647 1 [anon_sym_LBRACK];
     AGroup 15653 1 [anon_sym_POUND]; AGroup 15667 1 [sym_kSpecialize];
     AGroup 15673 1 [sym_kInherited]; AGroup 15675 1 [sym_kString];
     AGroup 15745 1 [anon_sym_LPAREN]; AGroup 15755 1 [sym_kIf]; AGroup 3 2 syms_5;
     AGroup 15651 2 syms_6; AGroup 15655 2 syms_7; AGroup 15657 2 syms_8; AGroup 15669 2 syms_11;
     AGroup 15747 2 syms_9; AGroup 15749 2 syms_10; SGroup 8129 2 syms_12; SGroup 7100 3 syms_13;
     SGroup 10313 4 syms_14; AGroup 18398 5 syms_15; SGroup 9096 14 syms_17]);
   (194333, 20, [AGroup 5 1 [sym_ppDirective]; AGroup 15647 1 [anon_sym_LBRACK];
     AGroup 15653 1 [anon_sym_POUND]; AGroup 15667 1 [sym_kSpecialize];
     AGroup 15673 1 [sym_kInherited]; AGroup 15675 1 [sym_kString];
     AGroup 15745 1 [anon_sym_LPAREN]; AGroup 15755 1 [sym_kIf]; AGroup 3 2 syms_5;
     AGroup 15651 2 syms_6; AGroup 15655 2 syms_7; AGroup 15657 2 syms_8; AGroup 15669 2 syms_11;
     AGroup 15747 2 syms_9; AGroup 15749 2 syms_10; SGroup 8129 2 syms_12; SGroup 7100 3 syms_13;
     SGroup 10313 4 syms_14; AGroup 18400 5 syms_15; SGroup 9097 14 syms_17]);
   (194424, 20, [AGroup 5 1 [sym_ppDirective]; AGroup 609 1 [anon_sym_LBRACK];
     AGroup 611 1 [anon_sym_LPAREN]; AGroup 615 1 [anon_sym_POUND];
     AGroup 631 1 [sym_kSpecialize]; AGroup 651 1 [sym_kInherited]; AGroup 657 1 [sym_kString];
     AGroup 14951 1 [sym_kIf]; AGroup 3 2 syms_5; AGroup 613 2 syms_6; AGroup 617 2 syms_7;
     AGroup 619 2 syms_8; AGroup 621 2 syms_9; AGroup 623 2 syms_10; AGroup 645 2 syms_11;
     SGroup 7084 2 syms_12; SGroup 6066 3 syms_13; SGroup 7003 4 syms_14; AGroup 625 5 syms_15;
     SGroup 7013 14 syms_17]);
   (194515, 20, [AGroup 5 1 [sym_ppDirective]; AGroup 15987 1 [anon_sym_LBRACK];
     AGroup 15989 1 [anon_sym_LPAREN]; AGroup 15993 1 [anon_sym_POUND];
     AGroup 16007 1 [sym_kSpecialize]; AGroup 16011 1 [sym_kIf]; AGroup 16013 1 [sym_kInherited];
     AGroup 18254 1 [sym_kString]; AGroup 3 2 syms_5; AGroup 15991 2 syms_6;
     AGroup 15995 2 syms_7; AGroup 15997 2 syms_8; AGroup 15999 2 syms_9; AGroup 16001 2 syms_10;
     AGroup 16009 2 syms_11; SGroup 9525 2 syms_12; SGroup 7769 3 syms_13; SGroup 9962 4 syms_14;
     AGroup 16003 5 syms_15; SGroup 9072 14 syms_17]);
   (194606, 20, [AGroup 5 1 [sym_ppDirective]; AGroup 15761 1 [anon_sym_LBRACK];
     AGroup 15763 1 [anon_sym_LPAREN]; AGroup 15767 1 [anon_sym_POUND];
     AGroup 15781 1 [sym_kSpecialize]; AGroup 15787 1 [sym_kInherited]; AGroup 16229 1 [sym_kIf];
     AGroup 17864 1 [sym_kString]; AGroup 3 2 syms_5; AGroup 15765 2 syms_6;
     AGroup 15769 2 syms_7; AGroup 15771 2 syms_8; AGroup 15783 2 syms_11; AGroup 16221 2 syms_9;
     AGroup 16223 2 syms_10; SGroup 9180 2 syms_12; SGroup 7467 3 syms_13; SGroup 9986 4 syms_14;
     AGroup 16225 5 syms_15; SGroup 9076 14 syms_17]);
   (194697, 20, [AGroup 5 1 [sym_ppDirective]; AGroup 15647 1 [anon_sym_LBRACK];
     AGroup 15653 1 [anon_sym_POUND]; AGroup 15667 1 [sym_kSpecialize];
     AGroup 15673 1 [sym_kInherited]; AGroup 15675 1 [sym_kString];
     AGroup 15745 1 [anon_sym_LPAREN]; AGroup 15755 1 [sym_kIf]; AGroup 3 2 syms_5;
     AGroup 15651 2 syms_6; AGroup 15655 2 syms_7; AGroup 15657 2 syms_8; AGroup 15669 2 syms_11;
     AGroup 15747 2 syms_9; AGroup 15749 2 syms_10; SGroup 8129 2 syms_12; SGroup 7100 3 syms_13;
     SGroup 9999 4 syms_14; AGroup 15751 5 syms_15; SGroup 8464 14 syms_17]);
   (194788, 2, [AGroup 3 3 syms_1; AGroup 15592 47 syms_155]);
   (194843, 31, [AGroup 5 1 [sym_ppDirective]; AGroup 13347 1 [anon_sym_LBRACK];
     AGroup 13351 1 [aux_sym_ppUsesBlock_token1]; AGroup 13365 1 [sym_identifier];
     AGroup 13367 1 [sym_kGeneric]; AGroup 13369 1 [sym_kOperator]; AGroup 13373 1 [sym_kStrict];
     AGroup 13377 1 [sym_kCase]; AGroup 13379 1 [sym_kClass]; AGroup 13391 1 [sym_kProperty];
     AGroup 13395 1 [sym_kType]; AGroup 18402 1 [anon_sym_SEMI]; AGroup 18404 1 [sym_kEnd];
     SGroup 2 1 [sym__ppIf]; SGroup 6354 1 [sym__visibility]; SGroup 9779 1 [sym_ppBlock];
     SGroup 9835 1 [sym__declOperator]; SGroup 10247 1 [sym__declProc];
     SGroup 10617 1 [sym_rttiAttributes]; SGroup 10730 1 [aux_sym_rttiAttributes_repeat2];
     SGroup 13987 1 [aux_sym_genericArg_repeat1]; SGroup 14294 1 [sym__declClass];
     SGroup 14434 1 [sym_declVariant]; AGroup 3 2 syms_5; AGroup 13381 2 syms_65;
     AGroup 13393 2 syms_66; SGroup 5685 2 syms_68; SGroup 10490 3 syms_69;
     AGroup 13383 4 syms_3; AGroup 13371 6 syms_70; SGroup 6150 6 syms_71]);
   (194956, 20, [AGroup 5 1 [sym_ppDirective]; AGroup 15647 1 [anon_sym_LBRACK];
     AGroup 15653 1 [anon_sym_POUND]; AGroup 15667 1 [sym_kSpecialize];
     AGroup 15673 1 [sym_kInherited]; AGroup 15675 1 [sym_kString];
     AGroup 15745 1 [anon_sym_LPAREN]; AGroup 15755 1 [sym_kIf]; AGroup 3 2 syms_5;
     AGroup 15651 2 syms_6; AGroup 15655 2 syms_7; AGroup 15657 2 syms_8; AGroup 15669 2 syms_11;
     AGroup 15747 2 syms_9; AGroup 15749 2 syms_10; SGroup 8129 2 syms_12; SGroup 7100 3 syms_13;
     SGroup 10076 4 syms_14; AGroup 15751 5 syms_15; SGroup 8464 14 syms_17]);
   (195047, 31, [AGroup 5 1 [sym_ppDirective]; AGroup 13347 1 [anon_sym_LBRACK];
     AGroup 13351 1 [aux_sym_ppUsesBlock_token1]; AGroup 13365 1 [sym_identifier];
     AGroup 13367 1 [sym_kGeneric]; AGroup 13369 1 [sym_kOperator]; AGroup 13373 1 [sym_kStrict];
     AGroup 13377 1 [sym_kCase]; AGroup 13379 1 [sym_kClass]; AGroup 13391 1 [sym_kProperty];
     AGroup 13395 1 [sym_kType]; AGroup 18406 1 [anon_sym_SEMI]; AGroup 18408 1 [sym_kEnd];
     SGroup 2 1 [sym__ppIf]; SGroup 6354 1 [sym__visibility]; SGroup 9779 1 [sym_ppBlock];
     SGroup 9835 1 [sym__declOperator]; SGroup 10247 1 [sym__declProc];
     SGroup 10617 1 [sym_rttiAttributes]; SGroup 10730 1 [aux_sym_rttiAttributes_repeat2];
     SGroup 13987 1 [aux_sym_genericArg_repeat1]; SGroup 14308 1 [sym__declClass];
     SGroup 14434 1 [sym_declVariant]; AGroup 3 2 syms_5; AGroup 13381 2 syms_65;
     AGroup 13393 2 syms_66; SGroup 5685 2 syms_68; SGroup 10490 3 syms_69;
     AGroup 13383 4 syms_3; AGroup 13371 6 syms_70; SGroup 6150 6 syms_71]);
   (195160, 20, [AGroup 5 1 [sym_ppDirective]; AGroup 16405 1 [anon_sym_LBRACK];
     AGroup 16407 1 [anon_sym_LPAREN]; AGroup 16411 1 [anon_sym_POUND];
     AGroup 16425 1 [sym_kSpecialize]; AGroup 16429 1 [sym_kIf]; AGroup 16431 1 [sym_kInherited];
     AGroup 18223 1 [sym_kString]; AGroup 3 2 syms_5; AGroup 16409 2 syms_6;
     AGroup 16413 2 syms_7; AGroup 16415 2 syms_8; AGroup 16417 2 syms_9; AGroup 16419 2 syms_10;
     AGroup 16427 2 syms_11; SGroup 9247 2 syms_12; SGroup 7508 3 syms_13; SGroup 9711 4 syms_14;
     AGroup 16421 5 syms_15; SGroup 8844 14 syms_17]);
   (195251, 20, [AGroup 5 1 [sym_ppDirective]; AGroup 16131 1 [anon_sym_LBRACK];
     AGroup 16133 1 [anon_sym_LPAREN]; AGroup 16137 1 [anon_sym_POUND];
     AGroup 16151 1 [sym_kSpecialize]; AGroup 16155 1 [sym_kIf]; AGroup 16157 1 [sym_kInherited];
     AGroup 17420 1 [sym_kString]; AGroup 3 2 syms_5; AGroup 16135 2 syms_6;
     AGroup 16139 2 syms_7; AGroup 16141 2 syms_8; AGroup 16143 2 syms_9; AGroup 16145 2 syms_10;
     AGroup 16153 2 syms_11; SGroup 8630 2 syms_12; SGroup 7260 3 syms_13; SGroup 8507 4 syms_14;
     AGroup 16147 5 syms_15; SGroup 8446 14 syms_17]);
   (195342, 20, [AGroup 5 1 [sym_ppDirective]; AGroup 15761 1 [anon_sym_LBRACK];
     AGroup 15763 1 [anon_sym_LPAREN]; AGroup 15767 1 [anon_sym_POUND];
     AGroup 15781 1 [sym_kSpecialize]; AGroup 15787 1 [sym_kInherited]; AGroup 16229 1 [sym_kIf];
     AGroup 17864 1 [sym_kString]; AGroup 3 2 syms_5; AGroup 15765 2 syms_6;
     AGroup 15769 2 syms_7; AGroup 15771 2 syms_8; AGroup 15783 2 syms_11; AGroup 16221 2 syms_9;
     AGroup 16223 2 syms_10; SGroup 9180 2 syms_12; SGroup 7467 3 syms_13;
     SGroup 10113 4 syms_14; AGroup 16225 5 syms_15; SGroup 9076 14 syms_17]);
   (195433, 20, [AGroup 5 1 [sym_ppDirective]; AGroup 15761 1 [anon_sym_LBRACK];
     AGroup 15763 1 [anon_sym_LPAREN]; AGroup 15767 1 [anon_sym_POUND];
     AGroup 15781 1 [sym_kSpecialize]; AGroup 15787 1 [sym_kInherited]; AGroup 16229 1 [sym_kIf];
     AGroup 17864 1 [sym_kString]; AGroup 3 2 syms_5; AGroup 15765 2 syms_6;
     AGroup 15769 2 syms_7; AGroup 15771 2 syms_8; AGroup 15783 2 syms_11; AGroup 16221 2 syms_9;
     AGroup 16223 2 syms_10; SGroup 9180 2 syms_12; SGroup 7467 3 syms_13;
     SGroup 10124 4 syms_14; AGroup 16225 5 syms_15; SGroup 9076 14 syms_17]);
   (195524, 20, [AGroup 5 1 [sym_ppDirective]; AGroup 16715 1 [anon_sym_LBRACK];
     AGroup 16717 1 [anon_sym_LPAREN]; AGroup 16721 1 [anon_sym_POUND];
     AGroup 16735 1 [sym_kSpecialize]; AGroup 16739 1 [sym_kIf]; AGroup 16741 1 [sym_kInherited];
     AGroup 18201 1 [sym_kString]; AGroup 3 2 syms_5; AGroup 16719 2 syms_6;
     AGroup 16723 2 syms_7; AGroup 16725 2 syms_8; AGroup 16727 2 syms_9; AGroup 16729 2 syms_10;
     AGroup 16737 2 syms_11; SGroup 7901 2 syms_12; SGroup 7014 3 syms_13; SGroup 8361 4 syms_14;
     AGroup 16731 5 syms_15; SGroup 7757 14 syms_17]);
   (195615, 31, [AGroup 5 1 [sym_ppDirective]; AGroup 13347 1 [anon_sym_LBRACK];
     AGroup 13351 1 [aux_sym_ppUsesBlock_token1]; AGroup 13365 1 [sym_identifier];
     AGroup 13367 1 [sym_kGeneric]; AGroup 13369 1 [sym_kOperator]; AGroup 13373 1 [sym_kStrict];
     AGroup 13377 1 [sym_kCase]; AGroup 13379 1 [sym_kClass]; AGroup 13391 1 [sym_kProperty];
     AGroup 13395 1 [sym_kType]; AGroup 18410 1 [anon_sym_SEMI]; AGroup 18412 1 [sym_kEnd];
     SGroup 2 1 [sym__ppIf]; SGroup 6354 1 [sym__visibility]; SGroup 9779 1 [sym_ppBlock];
     SGroup 9835 1 [sym__declOperator]; SGroup 10247 1 [sym__declProc];
     SGroup 10617 1 [sym_rttiAttributes]; SGroup 10730 1 [aux_sym_rttiAttributes_repeat2];
     SGroup 13987 1 [aux_sym_genericArg_repeat1]; SGroup 14315 1 [sym__declClass];
     SGroup 14434 1 [sym_declVariant]; AGroup 3 2 syms_5; AGroup 13381 2 syms_65;
     AGroup 13393 2 syms_66; SGroup 5685 2 syms_68; SGroup 10490 3 syms_69;
     AGroup 13383 4 syms_3; AGroup 13371 6 syms_70; SGroup 6150 6 syms_71]);
   (195728, 20, [AGroup 5 1 [sym_ppDirective]; AGroup 15831 1 [anon_sym_LBRACK];
     AGroup 15833 1 [anon_sym_LPAREN]; AGroup 15837 1 [anon_sym_POUND];
     AGroup 15851 1 [sym_kSpecialize]; AGroup 15855 1 [sym_kIf]; AGroup 15857 1 [sym_kInherited];
     AGroup 17312 1 [sym_kString]; AGroup 3 2 syms_5; AGroup 15835 2 syms_6;
     AGroup 15839 2 syms_7; AGroup 15841 2 syms_8; AGroup 15843 2 syms_9; AGroup 15845 2 syms_10;
     AGroup 15853 2 syms_11; SGroup 9267 2 syms_12; SGroup 7556 3 syms_13;
     SGroup 10133 4 syms_14; AGroup 15847 5 syms_15; SGroup 8649 14 syms_17]);
   (195819, 20, [AGroup 5 1 [sym_ppDirective]; AGroup 15647 1 [anon_sym_LBRACK];
     AGroup 15653 1 [anon_sym_POUND]; AGroup 15667 1 [sym_kSpecialize];
     AGroup 15673 1 [sym_kInherited]; AGroup 15675 1 [sym_kString];
     AGroup 15745 1 [anon_sym_LPAREN]; AGroup 15755 1 [sym_kIf]; AGroup 3 2 syms_5;
     AGroup 15651 2 syms_6; AGroup 15655 2 syms_7; AGroup 15657 2 syms_8; AGroup 15669 2 syms_11;
     AGroup 15747 2 syms_9; AGroup 15749 2 syms_10; SGroup 8129 2 syms_12; SGroup 7100 3 syms_13;
     SGroup 10137 4 syms_14; AGroup 15751 5 syms_15; SGroup 8464 14 syms_17]);
   (195910, 20, [AGroup 5 1 [sym_ppDirective]; AGroup 15647 1 [anon_sym_LBRACK];
     AGroup 15653 1 [anon_sym_POUND]; AGroup 15667 1 [sym_kSpecialize];
     AGroup 15673 1 [sym_kInherited]; AGroup 15675 1 [sym_kString];
     AGroup 15745 1 [anon_sym_LPAREN]; AGroup 15755 1 [sym_kIf]; AGroup 3 2 syms_5;
     AGroup 15651 2 syms_6; AGroup 15655 2 syms_7; AGroup 15657 2 syms_8; AGroup 15669 2 syms_11;
     AGroup 15747 2 syms_9; AGroup 15749 2 syms_10; SGroup 8129 2 syms_12; SGroup 7100 3 syms_13;
     SGroup 10140 4 syms_14; AGroup 15751 5 syms_15; SGroup 8464 14 syms_17]);
   (196001, 31, [AGroup 5 1 [sym_ppDirective]; AGroup 13347 1 [anon_sym_LBRACK];
     AGroup 13351 1 [aux_sym_ppUsesBlock_token1]; AGroup 13365 1 [sym_identifier];
     AGroup 13367 1 [sym_kGeneric]; AGroup 13369 1 [sym_kOperator]; AGroup 13373 1 [sym_kStrict];
     AGroup 13377 1 [sym_kCase]; AGroup 13379 1 [sym_kClass]; AGroup 13391 1 [sym_kProperty];
     AGroup 13395 1 [sym_kType]; AGroup 18414 1 [anon_sym_SEMI]; AGroup 18416 1 [sym_kEnd];
     SGroup 2 1 [sym__ppIf]; SGroup 6354 1 [sym__visibility]; SGroup 9779 1 [sym_ppBlock];
     SGroup 9835 1 [sym__declOperator]; SGroup 10247 1 [sym__declProc];
     SGroup 10617 1 [sym_rttiAttributes]; SGroup 10730 1 [aux_sym_rttiAttributes_repeat2];
     SGroup 13987 1 [aux_sym_genericArg_repeat1]; SGroup 14356 1 [sym__declClass];
     SGroup 14434 1 [sym_declVariant]; AGroup 3 2 syms_5; AGroup 13381 2 syms_65;
     AGroup 13393 2 syms_66; SGroup 5685 2 syms_68; SGroup 10490 3 syms_69;
     AGroup 13383 4 syms_3; AGroup 13371 6 syms_70; SGroup 6150 6 syms_71]);
   (196114, 20, [AGroup 5 1 [sym_ppDirective]; AGroup 16405 1 [anon_sym_LBRACK];
     AGroup 16407 1 [anon_sym_LPAREN]; AGroup 16411 1 [anon_sym_POUND];
     AGroup 16425 1 [sym_kSpecialize]; AGroup 16429 1 [sym_kIf]; AGroup 16431 1 [sym_kInherited];
     AGroup 18223 1 [sym_kString]; AGroup 3 2 syms_5; AGroup 16409 2 syms_6;
     AGroup 16413 2 syms_7; AGroup 16415 2 syms_8; AGroup 16417 2 syms_9; AGroup 16419 2 syms_10;
     AGroup 16427 2 syms_11; SGroup 9247 2 syms_12; SGroup 7508 3 syms_13; SGroup 9735 4 syms_14;
     AGroup 16421 5 syms_15; SGroup 8844 14 syms_17]);
   (196205, 20, [AGroup 5 1 [sym_ppDirective]; AGroup 15647 1 [anon_sym_LBRACK];
     AGroup 15653 1 [anon_sym_POUND]; AGroup 15667 1 [sym_kSpecialize];
     AGroup 15673 1 [sym_kInherited]; AGroup 15675 1 [sym_kString];
     AGroup 15745 1 [anon_sym_LPAREN]; AGroup 15755 1 [sym_kIf]; AGroup 3 2 syms_5;
     AGroup 15651 2 syms_6; AGroup 15655 2 syms_7; AGroup 15657 2 syms_8; AGroup 15669 2 syms_11;
     AGroup 15747 2 syms_9; AGroup 15749 2 syms_10; SGroup 8129 2 syms_12; SGroup 7100 3 syms_13;
     SGroup 10313 4 syms_14; AGroup 18418 5 syms_15; SGroup 9025 14 syms_17]);
   (196296, 31, [AGroup 5 1 [sym_ppDirective]; AGroup 13347 1 [anon_sym_LBRACK];
     AGroup 13351 1 [aux_sym_ppUsesBlock_token1]; AGroup 13365 1 [sym_identifier];
     AGroup 13367 1 [sym_kGeneric]; AGroup 13369 1 [sym_kOperator]; AGroup 13373 1 [sym_kStrict];
     AGroup 13377 1 [sym_kCase]; AGroup 13379 1 [sym_kClass]; AGroup 13391 1 [sym_kProperty];
     AGroup 13395 1 [sym_kType]; AGroup 18420 1 [anon_sym_SEMI]; AGroup 18422 1 [sym_kEnd];
     SGroup 2 1 [sym__ppIf]; SGroup 6354 1 [sym__visibility]; SGroup 9779 1 [sym_ppBlock];
     SGroup 9835 1 [sym__declOperator]; SGroup 10247 1 [sym__declProc];
     SGroup 10617 1 [sym_rttiAttributes]; SGroup 10730 1 [aux_sym_rttiAttributes_repeat2];
     SGroup 13987 1 [aux_sym_genericArg_repeat1]; SGroup 14383 1 [sym__declClass];
     SGroup 14434 1 [sym_declVariant]; AGroup 3 2 syms_5; AGroup 13381 2 syms_65;
     AGroup 13393 2 syms_66; SGroup 5685 2 syms_68; SGroup 10490 3 syms_69;
     AGroup 13383 4 syms_3; AGroup 13371 6 syms_70; SGroup 6150 6 syms_71]);
   (196409, 20, [AGroup 5 1 [sym_ppDirective]; AGroup 16161 1 [anon_sym_LBRACK];
     AGroup 16163 1 [anon_sym_LPAREN]; AGroup 16167 1 [anon_sym_POUND];
     AGroup 16181 1 [sym_kSpecialize]; AGroup 16185 1 [sym_kIf]; AGroup 16187 1 [sym_kInherited];
     AGroup 17192 1 [sym_kString]; AGroup 3 2 syms_5; AGroup 16165 2 syms_6;
     AGroup 16169 2 syms_7; AGroup 16171 2 syms_8; AGroup 16173 2 syms_9; AGroup 16175 2 syms_10;
     AGroup 16183 2 syms_11; SGroup 8481 2 syms_12; SGroup 7166 3 syms_13; SGroup 8116 4 syms_14;
     AGroup 16177 5 syms_15; SGroup 8150 14 syms_17]);
   (196500, 20, [AGroup 5 1 [sym_ppDirective]; AGroup 15647 1 [anon_sym_LBRACK];
     AGroup 15653 1 [anon_sym_POUND]; AGroup 15667 1 [sym_kSpecialize];
     AGroup 15673 1 [sym_kInherited]; AGroup 15675 1 [sym_kString];
     AGroup 15745 1 [anon_sym_LPAREN]; AGroup 15755 1 [sym_kIf]; AGroup 3 2 syms_5;
     AGroup 15651 2 syms_6; AGroup 15655 2 syms_7; AGroup 15657 2 syms_8; AGroup 15669 2 syms_11;
     AGroup 15747 2 syms_9; AGroup 15749 2 syms_10; SGroup 8129 2 syms_12; SGroup 7100 3 syms_13;
     SGroup 10313 4 syms_14; AGroup 18424 5 syms_15; SGroup 9156 14 syms_17]);
   (196591, 20, [AGroup 5 1 [sym_ppDirective]; AGroup 15647 1 [anon_sym_LBRACK];
     AGroup 15653 1 [anon_sym_POUND]; AGroup 15667 1 [sym_kSpecialize];
     AGroup 15673 1 [sym_kInherited]; AGroup 15675 1 [sym_kString];
     AGroup 15745 1 [anon_sym_LPAREN]; AGroup 15755 1 [sym_kIf]; AGroup 3 2 syms_5;
     AGroup 15651 2 syms_6; AGroup 15655 2 syms_7; AGroup 15657 2 syms_8; AGroup 15669 2 syms_11;
     AGroup 15747 2 syms_9; AGroup 15749 2 syms_10; SGroup 8129 2 syms_12; SGroup 7100 3 syms_13;
     SGroup 10313 4 syms_14; AGroup 18426 5 syms_15; SGroup 9158 14 syms_17]);
   (196682, 20, [AGroup 5 1 [sym_ppDirective]; AGroup 609 1 [anon_sym_LBRACK];
     AGroup 611 1 [anon_sym_LPAREN]; AGroup 615 1 [anon_sym_POUND];
     AGroup 631 1 [sym_kSpecialize]; AGroup 651 1 [sym_kInherited]; AGroup 657 1 [sym_kString];
     AGroup 14951 1 [sym_kIf]; AGroup 3 2 syms_5; AGroup 613 2 syms_6; AGroup 617 2 syms_7;
     AGroup 619 2 syms_8; AGroup 621 2 syms_9; AGroup 623 2 syms_10; AGroup 645 2 syms_11;
     SGroup 7084 2 syms_12; SGroup 6066 3 syms_13; SGroup 7037 4 syms_14; AGroup 625 5 syms_15;
     SGroup 7013 14 syms_17]);
   (196773, 20, [AGroup 5 1 [sym_ppDirective]; AGroup 15647 1 [anon_sym_LBRACK];
     AGroup 15653 1 [anon_sym_POUND]; AGroup 15667 1 [sym_kSpecialize];
     AGroup 15673 1 [sym_kInherited]; AGroup 15675 1 [sym_kString];
     AGroup 15745 1 [anon_sym_LPAREN]; AGroup 15755 1 [sym_kIf]; AGroup 3 2 syms_5;
     AGroup 15651 2 syms_6; AGroup 15655 2 syms_7; AGroup 15657 2 syms_8; AGroup 15669 2 syms_11;
     AGroup 15747 2 syms_9; AGroup 15749 2 syms_10; SGroup 8129 2 syms_12; SGroup 7100 3 syms_13;
     SGroup 10313 4 syms_14; AGroup 18428 5 syms_15; SGroup 9164 14 syms_17]);
   (196864, 20, [AGroup 5 1 [sym_ppDirective]; AGroup 15647 1 [anon_sym_LBRACK];
     AGroup 15653 1 [anon_sym_POUND]; AGroup 15667 1 [sym_kSpecialize];
     AGroup 15673 1 [sym_kInherited]; AGroup 15675 1 [sym_kString];
     AGroup 15745 1 [anon_sym_LPAREN]; AGroup 15755 1 [sym_kIf]; AGroup 3 2 syms_5;
     AGroup 15651 2 syms_6; AGroup 15655 2 syms_7; AGroup 15657 2 syms_8; AGroup 15669 2 syms_11;
     AGroup 15747 2 syms_9; AGroup 15749 2 syms_10; SGroup 8129 2 syms_12; SGroup 7100 3 syms_13;
     SGroup 10313 4 syms_14; AGroup 18430 5 syms_15; SGroup 9165 14 syms_17]);
   (196955, 20, [AGroup 5 1 [sym_ppDirective]; AGroup 15647 1 [anon_sym_LBRACK];
     AGroup 15653 1 [anon_sym_POUND]; AGroup 15667 1 [sym_kSpecialize];
     AGroup 15673 1 [sym_kInherited]; AGroup 15675 1 [sym_kString];
     AGroup 15745 1 [anon_sym_LPAREN]; AGroup 15755 1 [sym_kIf]; AGroup 3 2 syms_5;
     AGroup 15651 2 syms_6; AGroup 15655 2 syms_7; AGroup 15657 2 syms_8; AGroup 15669 2 syms_11;
     AGroup 15747 2 syms_9; AGroup 15749 2 syms_10; SGroup 8129 2 syms_12; SGroup 7100 3 syms_13;
     SGroup 10313 4 syms_14; AGroup 18432 5 syms_15; SGroup 9166 14 syms_17]);
   (197046, 20, [AGroup 5 1 [sym_ppDirective]; AGroup 15647 1 [anon_sym_LBRACK];
     AGroup 15653 1 [anon_sym_POUND]; AGroup 15667 1 [sym_kSpecialize];
     AGroup 15673 1 [sym_kInherited]; AGroup 15675 1 [sym_kString];
     AGroup 15745 1 [anon_sym_LPAREN]; AGroup 15755 1 [sym_kIf]; AGroup 3 2 syms_5;
     AGroup 15651 2 syms_6; AGroup 15655 2 syms_7; AGroup 15657 2 syms_8; AGroup 15669 2 syms_11;
     AGroup 15747 2 syms_9; AGroup 15749 2 syms_10; SGroup 8129 2 syms_12; SGroup 7100 3 syms_13;
     SGroup 10313 4 syms_14; AGroup 18434 5 syms_15; SGroup 9167 14 syms_17]);
   (197137, 20, [AGroup 5 1 [sym_ppDirective]; AGroup 15647 1 [anon_sym_LBRACK];
     AGroup 15653 1 [anon_sym_POUND]; AGroup 15667 1 [sym_kSpecialize];
     AGroup 15673 1 [sym_kInherited]; AGroup 15675 1 [sym_kString];
     AGroup 15745 1 [anon_sym_LPAREN]; AGroup 15755 1 [sym_kIf]; AGroup 3 2 syms_5;
     AGroup 15651 2 syms_6; AGroup 15655 2 syms_7; AGroup 15657 2 syms_8; AGroup 15669 2 syms_11;
     AGroup 15747 2 syms_9; AGroup 15749 2 syms_10; SGroup 8129 2 syms_12; SGroup 7100 3 syms_13;
     SGroup 10313 4 syms_14; AGroup 18436 5 syms_15; SGroup 9169 14 syms_17]);
   (197228, 20, [AGroup 5 1 [sym_ppDirective]; AGroup 15647 1 [anon_sym_LBRACK];
     AGroup 15653 1 [anon_sym_POUND]; AGroup 15667 1 [sym_kSpecialize];
     AGroup 15673 1 [sym_kInherited]; AGroup 15675 1 [sym_kString];
     AGroup 15745 1 [anon_sym_LPAREN]; AGroup 15755 1 [sym_kIf]; AGroup 3 2 syms_5;
     AGroup 15651 2 syms_6; AGroup 15655 2 syms_7; AGroup 15657 2 syms_8; AGroup 15669 2 syms_11;
     AGroup 15747 2 syms_9; AGroup 15749 2 syms_10; SGroup 8129 2 syms_12; SGroup 7100 3 syms_13;
     SGroup 10313 4 syms_14; AGroup 18438 5 syms_15; SGroup 9170 14 syms_17]);
   (197319, 20, [AGroup 5 1 [sym_ppDirective]; AGroup 15987 1 [anon_sym_LBRACK];
     AGroup 15989 1 [anon_sym_LPAREN]; AGroup 15993 1 [anon_sym_POUND];
     AGroup 16007 1 [sym_kSpecialize]; AGroup 16011 1 [sym_kIf]; AGroup 16013 1 [sym_kInherited];
     AGroup 18254 1 [sym_kString]; AGroup 3 2 syms_5; AGroup 15991 2 syms_6;
     AGroup 15995 2 syms_7; AGroup 15997 2 syms_8; AGroup 15999 2 syms_9; AGroup 16001 2 syms_10;
     AGroup 16009 2 syms_11; SGroup 9525 2 syms_12; SGroup 7769 3 syms_13; SGroup 9850 4 syms_14;
     AGroup 16003 5 syms_15; SGroup 9072 14 syms_17]);
   (197410, 20, [AGroup 5 1 [sym_ppDirective]; AGroup 15761 1 [anon_sym_LBRACK];
     AGroup 15763 1 [anon_sym_LPAREN]; AGroup 15767 1 [anon_sym_POUND];
     AGroup 15781 1 [sym_kSpecialize]; AGroup 15787 1 [sym_kInherited]; AGroup 16229 1 [sym_kIf];
     AGroup 17864 1 [sym_kString]; AGroup 3 2 syms_5; AGroup 15765 2 syms_6;
     AGroup 15769 2 syms_7; AGroup 15771 2 syms_8; AGroup 15783 2 syms_11; AGroup 16221 2 syms_9;
     AGroup 16223 2 syms_10; SGroup 9180 2 syms_12; SGroup 7467 3 syms_13; SGroup 9865 4 syms_14;
     AGroup 16225 5 syms_15; SGroup 9076 14 syms_17]);
   (197501, 5, [AGroup 5 1 [sym_ppDirective]; AGroup 3 2 syms_5; AGroup 15473 4 syms_25;
     AGroup 15403 18 syms_36; AGroup 15471 25 syms_161]);
   (197562, 20, [AGroup 5 1 [sym_ppDirective]; AGroup 15647 1 [anon_sym_LBRACK];
     AGroup 15653 1 [anon_sym_POUND]; AGroup 15667 1 [sym_kSpecialize];
     AGroup 15673 1 [sym_kInherited]; AGroup 15675 1 [sym_kString];
     AGroup 15745 1 [anon_sym_LPAREN]; AGroup 15755 1 [sym_kIf]; AGroup 3 2 syms_5;
     AGroup 15651 2 syms_6; AGroup 15655 2 syms_7; AGroup 15657 2 syms_8; AGroup 15669 2 syms_11;
     AGroup 15747 2 syms_9; AGroup 15749 2 syms_10; SGroup 8129 2 syms_12; SGroup 7100 3 syms_13;
     SGroup 9880 4 syms_14; AGroup 15751 5 syms_15; SGroup 8464 14 syms_17]);
   (197653, 20, [AGroup 5 1 [sym_ppDirective]; AGroup 16161 1 [anon_sym_LBRACK];
     AGroup 16163 1 [anon_sym_LPAREN]; AGroup 16167 1 [anon_sym_POUND];
     AGroup 16181 1 [sym_kSpecialize]; AGroup 16185 1 [sym_kIf]; AGroup 16187 1 [sym_kInherited];
     AGroup 17192 1 [sym_kString]; AGroup 3 2 syms_5; AGroup 16165 2 syms_6;
     AGroup 16169 2 syms_7; AGroup 16171 2 syms_8; AGroup 16173 2 syms_9; AGroup 16175 2 syms_10;
     AGroup 16183 2 syms_11; SGroup 8481 2 syms_12; SGroup 7166 3 syms_13; SGroup 8156 4 syms_14;
     AGroup 16177 5 syms_15; SGroup 8150 14 syms_17]);
   (197744, 20, [AGroup 5 1 [sym_ppDirective]; AGroup 15647 1 [anon_sym_LBRACK];
     AGroup 15653 1 [anon_sym_POUND]; AGroup 15667 1 [sym_kSpecialize];
     AGroup 15673 1 [sym_kInherited]; AGroup 15675 1 [sym_kString];
     AGroup 15745 1 [anon_sym_LPAREN]; AGroup 15755 1 [sym_kIf]; AGroup 3 2 syms_5;
     AGroup 15651 2 syms_6; AGroup 15655 2 syms_7; AGroup 15657 2 syms_8; AGroup 15669 2 syms_11;
     AGroup 15747 2 syms_9; AGroup 15749 2 syms_10; SGroup 8129 2 syms_12; SGroup 7100 3 syms_13;
     SGroup 9948 4 syms_14; AGroup 15751 5 syms_15; SGroup 8464 14 syms_17]);
   (197835, 20, [AGroup 5 1 [sym_ppDirective]; AGroup 16405 1 [anon_sym_LBRACK];
     AGroup 16407 1 [anon_sym_LPAREN]; AGroup 16411 1 [anon_sym_POUND];
     AGroup 16425 1 [sym_kSpecialize]; AGroup 16429 1 [sym_kIf]; AGroup 16431 1 [sym_kInherited];
     AGroup 18223 1 [sym_kString]; AGroup 3 2 syms_5; AGroup 16409 2 syms_6;
     AGroup 16413 2 syms_7; AGroup 16415 2 syms_8; AGroup 16417 2 syms_9; AGroup 16419 2 syms_10;
     AGroup 16427 2 syms_11; SGroup 9247 2 syms_12; SGroup 7508 3 syms_13; SGroup 9824 4 syms_14;
     AGroup 16421 5 syms_15; SGroup 8844 14 syms_17]);
   (197926, 20, [AGroup 5 1 [sym_ppDirective]; AGroup 16161 1 [anon_sym_LBRACK];
     AGroup 16163 1 [anon_sym_LPAREN]; AGroup 16167 1 [anon_sym_POUND];
     AGroup 16181 1 [sym_kSpecialize]; AGroup 16185 1 [sym_kIf]; AGroup 16187 1 [sym_kInherited];
     AGroup 17192 1 [sym_kString]; AGroup 3 2 syms_5; AGroup 16165 2 syms_6;
     AGroup 16169 2 syms_7; AGroup 16171 2 syms_8; AGroup 16173 2 syms_9; AGroup 16175 2 syms_10;
     AGroup 16183 2 syms_11; SGroup 8481 2 syms_12; SGroup 7166 3 syms_13; SGroup 8159 4 syms_14;
     AGroup 16177 5 syms_15; SGroup 8150 14 syms_17]);
   (198017, 20, [AGroup 5 1 [sym_ppDirective]; AGroup 15761 1 [anon_sym_LBRACK];
     AGroup 15763 1 [anon_sym_LPAREN]; AGroup 15767 1 [anon_sym_POUND];
     AGroup 15781 1 [sym_kSpecialize]; AGroup 15787 1 [sym_kInherited]; AGroup 16229 1 [sym_kIf];
     AGroup 17864 1 [sym_kString]; AGroup 3 2 syms_5; AGroup 15765 2 syms_6;
     AGroup 15769 2 syms_7; AGroup 15771 2 syms_8; AGroup 15783 2 syms_11; AGroup 16221 2 syms_9;
     AGroup 16223 2 syms_10; SGroup 9180 2 syms_12; SGroup 7467 3 syms_13; SGroup 9955 4 syms_14;
     AGroup 16225 5 syms_15; SGroup 9076 14 syms_17]);
   (198108, 20, [AGroup 5 1 [sym_ppDirective]; AGroup 15761 1 [anon_sym_LBRACK];
     AGroup 15763 1 [anon_sym_LPAREN]; AGroup 15767 1 [anon_sym_POUND];
     AGroup 15781 1 [sym_kSpecialize]; AGroup 15787 1 [sym_kInherited]; AGroup 16229 1 [sym_kIf];
     AGroup 17864 1 [sym_kString]; AGroup 3 2 syms_5; AGroup 15765 2 syms_6;
     AGroup 15769 2 syms_7; AGroup 15771 2 syms_8; AGroup 15783 2 syms_11; AGroup 16221 2 syms_9;
     AGroup 16223 2 syms_10; SGroup 9180 2 syms_12; SGroup 7467 3 syms_13; SGroup 9957 4 syms_14;
     AGroup 16225 5 syms_15; SGroup 9076 14 syms_17]);
   (198199, 20, [AGroup 5 1 [sym_ppDirective]; AGroup 16715 1 [anon_sym_LBRACK];
     AGroup 16717 1 [anon_sym_LPAREN]; AGroup 16721 1 [anon_sym_POUND];
     AGroup 16735 1 [sym_kSpecialize]; AGroup 16739 1 [sym_kIf]; AGroup 16741 1 [sym_kInherited];
     AGroup 18201 1 [sym_kString]; AGroup 3 2 syms_5; AGroup 16719 2 syms_6;
     AGroup 16723 2 syms_7; AGroup 16725 2 syms_8; AGroup 16727 2 syms_9; AGroup 16729 2 syms_10;
     AGroup 16737 2 syms_11; SGroup 7901 2 syms_12; SGroup 7014 3 syms_13; SGroup 8391 4 syms_14;
     AGroup 16731 5 syms_15; SGroup 7757 14 syms_17]);
   (198290, 20, [AGroup 5 1 [sym_ppDirective]; AGroup 15831 1 [anon_sym_LBRACK];
     AGroup 15833 1 [anon_sym_LPAREN]; AGroup 15837 1 [anon_sym_POUND];
     AGroup 15851 1 [sym_kSpecialize]; AGroup 15855 1 [sym_kIf]; AGroup 15857 1 [sym_kInherited];
     AGroup 17312 1 [sym_kString]; AGroup 3 2 syms_5; AGroup 15835 2 syms_6;
     AGroup 15839 2 syms_7; AGroup 15841 2 syms_8; AGroup 15843 2 syms_9; AGroup 15845 2 syms_10;
     AGroup 15853 2 syms_11; SGroup 9267 2 syms_12; SGroup 7556 3 syms_13; SGroup 8835 4 syms_14;
     AGroup 15847 5 syms_15; SGroup 8649 14 syms_17]);
   (198381, 20, [AGroup 5 1 [sym_ppDirective]; AGroup 16161 1 [anon_sym_LBRACK];
     AGroup 16163 1 [anon_sym_LPAREN]; AGroup 16167 1 [anon_sym_POUND];
     AGroup 16181 1 [sym_kSpecialize]; AGroup 16185 1 [sym_kIf]; AGroup 16187 1 [sym_kInherited];
     AGroup 17192 1 [sym_kString]; AGroup 3 2 syms_5; AGroup 16165 2 syms_6;
     AGroup 16169 2 syms_7; AGroup 16171 2 syms_8; AGroup 16173 2 syms_9; AGroup 16175 2 syms_10;
     AGroup 16183 2 syms_11; SGroup 8481 2 syms_12; SGroup 7166 3 syms_13; SGroup 8160 4 syms_14;
     AGroup 16177 5 syms_15; SGroup 8150 14 syms_17]);
   (198472, 21, [AGroup 5 1 [sym_ppDirective]; AGroup 16161 1 [anon_sym_LBRACK];
     AGroup 16163 1 [anon_sym_LPAREN]; AGroup 16167 1 [anon_sym_POUND]; AGroup 16175 1 [sym_kAt];
     AGroup 16181 1 [sym_kSpecialize]; AGroup 16185 1 [sym_kIf]; AGroup 16187 1 [sym_kInherited];
     AGroup 17192 1 [sym_kString]; AGroup 18440 1 [sym_kNot]; AGroup 3 2 syms_5;
     AGroup 16165 2 syms_6; AGroup 16169 2 syms_7; AGroup 16171 2 syms_8; AGroup 16173 2 syms_9;
     AGroup 16183 2 syms_11; SGroup 8481 2 syms_12; SGroup 7166 3 syms_13; SGroup 8160 4 syms_14;
     AGroup 16177 5 syms_15; SGroup 8150 14 syms_17]);
   (198565, 20, [AGroup 5 1 [sym_ppDirective]; AGroup 15831 1 [anon_sym_LBRACK];
     AGroup 15833 1 [anon_sym_LPAREN]; AGroup 15837 1 [anon_sym_POUND];
     AGroup 15851 1 [sym_kSpecialize]; AGroup 15855 1 [sym_kIf]; AGroup 15857 1 [sym_kInherited];
     AGroup 17312 1 [sym_kString]; AGroup 3 2 syms_5; AGroup 15835 2 syms_6;
     AGroup 15839 2 syms_7; AGroup 15841 2 syms_8; AGroup 15843 2 syms_9; AGroup 15845 2 syms_10;
     AGroup 15853 2 syms_11; SGroup 9267 2 syms_12; SGroup 7556 3 syms_13; SGroup 9973 4 syms_14;
     AGroup 15847 5 syms_15; SGroup 8649 14 syms_17]);
   (198656, 20, [AGroup 5 1 [sym_ppDirective]; AGroup 15647 1 [anon_sym_LBRACK];
     AGroup 15653 1 [anon_sym_POUND]; AGroup 15667 1 [sym_kSpecialize];
     AGroup 15673 1 [sym_kInherited]; AGroup 15675 1 [sym_kString];
     AGroup 15745 1 [anon_sym_LPAREN]; AGroup 15755 1 [sym_kIf]; AGroup 3 2 syms_5;
     AGroup 15651 2 syms_6; AGroup 15655 2 syms_7; AGroup 15657 2 syms_8; AGroup 15669 2 syms_11;
     AGroup 15747 2 syms_9; AGroup 15749 2 syms_10; SGroup 8129 2 syms_12; SGroup 7100 3 syms_13;
     SGroup 9978 4 syms_14; AGroup 15751 5 syms_15; SGroup 8464 14 syms_17]);
   (198747, 20, [AGroup 5 1 [sym_ppDirective]; AGroup 15647 1 [anon_sym_LBRACK];
     AGroup 15653 1 [anon_sym_POUND]; AGroup 15667 1 [sym_kSpecialize];
     AGroup 15673 1 [sym_kInherited]; AGroup 15675 1 [sym_kString];
     AGroup 15745 1 [anon_sym_LPAREN]; AGroup 15755 1 [sym_kIf]; AGroup 3 2 syms_5;
     AGroup 15651 2 syms_6; AGroup 15655 2 syms_7; AGroup 15657 2 syms_8; AGroup 15669 2 syms_11;
     AGroup 15747 2 syms_9; AGroup 15749 2 syms_10; SGroup 8129 2 syms_12; SGroup 7100 3 syms_13;
     SGroup 9980 4 syms_14; AGroup 15751 5 syms_15; SGroup 8464 14 syms_17]);
   (198838, 20, [AGroup 5 1 [sym_ppDirective]; AGroup 16247 1 [anon_sym_LBRACK];
     AGroup 16249 1 [anon_sym_LPAREN]; AGroup 16253 1 [anon_sym_POUND];
     AGroup 16267 1 [sym_kSpecialize]; AGroup 16271 1 [sym_kIf]; AGroup 16273 1 [sym_kInherited];
     AGroup 16745 1 [sym_kString]; AGroup 3 2 syms_5; AGroup 16251 2 syms_6;
     AGroup 16255 2 syms_7; AGroup 16257 2 syms_8; AGroup 16259 2 syms_9; AGroup 16261 2 syms_10;
     AGroup 16269 2 syms_11; SGroup 8258 2 syms_12; SGroup 7207 3 syms_13; SGroup 8056 4 syms_14;
     AGroup 16263 5 syms_15; SGroup 8006 14 syms_17]);
   (198929, 20, [AGroup 5 1 [sym_ppDirective]; AGroup 15831 1 [anon_sym_LBRACK];
     AGroup 15833 1 [anon_sym_LPAREN]; AGroup 15837 1 [anon_sym_POUND];
     AGroup 15851 1 [sym_kSpecialize]; AGroup 15855 1 [sym_kIf]; AGroup 15857 1 [sym_kInherited];
     AGroup 17312 1 [sym_kString]; AGroup 3 2 syms_5; AGroup 15835 2 syms_6;
     AGroup 15839 2 syms_7; AGroup 15841 2 syms_8; AGroup 15843 2 syms_9; AGroup 15845 2 syms_10;
     AGroup 15853 2 syms_11; SGroup 9267 2 syms_12; SGroup 7556 3 syms_13; SGroup 8693 4 syms_14;
     AGroup 15847 5 syms_15; SGroup 8649 14 syms_17]);
   (199020, 20, [AGroup 5 1 [sym_ppDirective]; AGroup 16405 1 [anon_sym_LBRACK];
     AGroup 16407 1 [anon_sym_LPAREN]; AGroup 16411 1 [anon_sym_POUND];
     AGroup 16425 1 [sym_kSpecialize]; AGroup 16429 1 [sym_kIf]; AGroup 16431 1 [sym_kInherited];
     AGroup 18223 1 [sym_kString]; AGroup 3 2 syms_5; AGroup 16409 2 syms_6;
     AGroup 16413 2 syms_7; AGroup 16415 2 syms_8; AGroup 16417 2 syms_9; AGroup 16419 2 syms_10;
     AGroup 16427 2 syms_11; SGroup 9247 2 syms_12; SGroup 7508 3 syms_13; SGroup 9629 4 syms_14;
     AGroup 16421 5 syms_15; SGroup 8844 14 syms_17]);
   (199111, 20, [AGroup 5 1 [sym_ppDirective]; AGroup 15831 1 [anon_sym_LBRACK];
     AGroup 15833 1 [anon_sym_LPAREN]; AGroup 15837 1 [anon_sym_POUND];
     AGroup 15851 1 [sym_kSpecialize]; AGroup 15855 1 [sym_kIf]; AGroup 15857 1 [sym_kInherited];
     AGroup 17312 1 [sym_kString]; AGroup 3 2 syms_5; AGroup 15835 2 syms_6;
     AGroup 15839 2 syms_7; AGroup 15841 2 syms_8; AGroup 15843 2 syms_9; AGroup 15845 2 syms_10;
     AGroup 15853 2 syms_11; SGroup 9267 2 syms_12; SGroup 7556 3 syms_13; SGroup 8694 4 syms_14;
     AGroup 15847 5 syms_15; SGroup 8649 14 syms_17]);
   (199202, 20, [AGroup 5 1 [sym_ppDirective]; AGroup 15831 1 [anon_sym_LBRACK];
     AGroup 15833 1 [anon_sym_LPAREN]; AGroup 15837 1 [anon_sym_POUND];
     AGroup 15851 1 [sym_kSpecialize]; AGroup 15855 1 [sym_kIf]; AGroup 15857 1 [sym_kInherited];
     AGroup 17312 1 [sym_kString]; AGroup 3 2 syms_5; AGroup 15835 2 syms_6;
     AGroup 15839 2 syms_7; AGroup 15841 2 syms_8; AGroup 15843 2 syms_9; AGroup 15845 2 syms_10;
     AGroup 15853 2 syms_11; SGroup 9267 2 syms_12; SGroup 7556 3 syms_13; SGroup 8696 4 syms_14;
     AGroup 15847 5 syms_15; SGroup 8649 14 syms_17]);
   (199293, 20, [AGroup 5 1 [sym_ppDirective]; AGroup 15647 1 [anon_sym_LBRACK];
     AGroup 15653 1 [anon_sym_POUND]; AGroup 15667 1 [sym_kSpecialize];
     AGroup 15673 1 [sym_kInherited]; AGroup 15675 1 [sym_kString];
     AGroup 15745 1 [anon_sym_LPAREN]; AGroup 15755 1 [sym_kIf]; AGroup 3 2 syms_5;
     AGroup 15651 2 syms_6; AGroup 15655 2 syms_7; AGroup 15657 2 syms_8; AGroup 15669 2 syms_11;
     AGroup 15747 2 syms_9; AGroup 15749 2 syms_10; SGroup 8129 2 syms_12; SGroup 7100 3 syms_13;
     SGroup 10313 4 syms_14; AGroup 18442 5 syms_15; SGroup 9199 14 syms_17]);
   (199384, 20, [AGroup 5 1 [sym_ppDirective]; AGroup 15647 1 [anon_sym_LBRACK];
     AGroup 15653 1 [anon_sym_POUND]; AGroup 15667 1 [sym_kSpecialize];
     AGroup 15673 1 [sym_kInherited]; AGroup 15675 1 [sym_kString];
     AGroup 15745 1 [anon_sym_LPAREN]; AGroup 15755 1 [sym_kIf]; AGroup 3 2 syms_5;
     AGroup 15651 2 syms_6; AGroup 15655 2 syms_7; AGroup 15657 2 syms_8; AGroup 15669 2 syms_11;
     AGroup 15747 2 syms_9; AGroup 15749 2 syms_10; SGroup 8129 2 syms_12; SGroup 7100 3 syms_13;
     SGroup 10313 4 syms_14; AGroup 18444 5 syms_15; SGroup 9200 14 syms_17]);
   (199475, 21, [AGroup 5 1 [sym_ppDirective]; AGroup 15831 1 [anon_sym_LBRACK];
     AGroup 15833 1 [anon_sym_LPAREN]; AGroup 15837 1 [anon_sym_POUND]; AGroup 15845 1 [sym_kAt];
     AGroup 15851 1 [sym_kSpecialize]; AGroup 15855 1 [sym_kIf]; AGroup 15857 1 [sym_kInherited];
     AGroup 17312 1 [sym_kString]; AGroup 18446 1 [sym_kNot]; AGroup 3 2 syms_5;
     AGroup 15835 2 syms_6; AGroup 15839 2 syms_7; AGroup 15841 2 syms_8; AGroup 15843 2 syms_9;
     AGroup 15853 2 syms_11; SGroup 9267 2 syms_12; SGroup 7556 3 syms_13; SGroup 8696 4 syms_14;
     AGroup 15847 5 syms_15; SGroup 8649 14 syms_17]);
   (199568, 20, [AGroup 5 1 [sym_ppDirective]; AGroup 15831 1 [anon_sym_LBRACK];
     AGroup 15833 1 [anon_sym_LPAREN]; AGroup 15837 1 [anon_sym_POUND];
     AGroup 15851 1 [sym_kSpecialize]; AGroup 15855 1 [sym_kIf]; AGroup 15857 1 [sym_kInherited];
     AGroup 17312 1 [sym_kString]; AGroup 3 2 syms_5; AGroup 15835 2 syms_6;
     AGroup 15839 2 syms_7; AGroup 15841 2 syms_8; AGroup 15843 2 syms_9; AGroup 15845 2 syms_10;
     AGroup 15853 2 syms_11; SGroup 9267 2 syms_12; SGroup 7556 3 syms_13; SGroup 8698 4 syms_14;
     AGroup 15847 5 syms_15; SGroup 8649 14 syms_17]);
   (199659, 20, [AGroup 5 1 [sym_ppDirective]; AGroup 14735 1 [anon_sym_LBRACK];
     AGroup 14737 1 [anon_sym_LPAREN]; AGroup 14741 1 [anon_sym_POUND];
     AGroup 14755 1 [sym_kSpecialize]; AGroup 14759 1 [sym_kIf]; AGroup 14761 1 [sym_kInherited];
     AGroup 14763 1 [sym_kString]; AGroup 3 2 syms_5; AGroup 14739 2 syms_6;
     AGroup 14743 2 syms_7; AGroup 14745 2 syms_8; AGroup 14749 2 syms_9; AGroup 14751 2 syms_10;
     AGroup 14757 2 syms_11; SGroup 3618 2 syms_12; SGroup 2833 3 syms_13; SGroup 2028 4 syms_14;
     AGroup 14753 5 syms_15; SGroup 3466 14 syms_17]);
   (199750, 20, [AGroup 5 1 [sym_ppDirective]; AGroup 15755 1 [sym_kIf]; AGroup 15831 1 [anon_sym_LBRACK];
     AGroup 15833 1 [anon_sym_LPAREN]; AGroup 15837 1 [anon_sym_POUND];
     AGroup 15851 1 [sym_kSpecialize]; AGroup 15857 1 [sym_kInherited];
     AGroup 17312 1 [sym_kString]; AGroup 3 2 syms_5; AGroup 15747 2 syms_9;
     AGroup 15749 2 syms_10; AGroup 15835 2 syms_6; AGroup 15839 2 syms_7; AGroup 15841 2 syms_8;
     AGroup 15853 2 syms_11; SGroup 9267 2 syms_12; SGroup 7556 3 syms_13;
     SGroup 10257 4 syms_14; AGroup 18448 5 syms_15; SGroup 8706 14 syms_17]);
   (199841, 20, [AGroup 5 1 [sym_ppDirective]; AGroup 15647 1 [anon_sym_LBRACK];
     AGroup 15653 1 [anon_sym_POUND]; AGroup 15667 1 [sym_kSpecialize];
     AGroup 15673 1 [sym_kInherited]; AGroup 15675 1 [sym_kString];
     AGroup 15745 1 [anon_sym_LPAREN]; AGroup 15755 1 [sym_kIf]; AGroup 3 2 syms_5;
     AGroup 15651 2 syms_6; AGroup 15655 2 syms_7; AGroup 15657 2 syms_8; AGroup 15669 2 syms_11;
     AGroup 15747 2 syms_9; AGroup 15749 2 syms_10; SGroup 8129 2 syms_12; SGroup 7100 3 syms_13;
     SGroup 10313 4 syms_14; AGroup 18450 5 syms_15; SGroup 9201 14 syms_17]);
   (199932, 20, [AGroup 5 1 [sym_ppDirective]; AGroup 15647 1 [anon_sym_LBRACK];
     AGroup 15653 1 [anon_sym_POUND]; AGroup 15667 1 [sym_kSpecialize];
     AGroup 15673 1 [sym_kInherited]; AGroup 15675 1 [sym_kString];
     AGroup 15745 1 [anon_sym_LPAREN]; AGroup 15755 1 [sym_kIf]; AGroup 3 2 syms_5;
     AGroup 15651 2 syms_6; AGroup 15655 2 syms_7; AGroup 15657 2 syms_8; AGroup 15669 2 syms_11;
     AGroup 15747 2 syms_9; AGroup 15749 2 syms_10; SGroup 8129 2 syms_12; SGroup 7100 3 syms_13;
     SGroup 10313 4 syms_14; AGroup 18452 5 syms_15; SGroup 9202 14 syms_17]);
   (200023, 20, [AGroup 5 1 [sym_ppDirective]; AGroup 15647 1 [anon_sym_LBRACK];
     AGroup 15653 1 [anon_sym_POUND]; AGroup 15667 1 [sym_kSpecialize];
     AGroup 15673 1 [sym_kInherited]; AGroup 15675 1 [sym_kString];
     AGroup 15745 1 [anon_sym_LPAREN]; AGroup 15755 1 [sym_kIf]; AGroup 3 2 syms_5;
     AGroup 15651 2 syms_6; AGroup 15655 2 syms_7; AGroup 15657 2 syms_8; AGroup 15669 2 syms_11;
     AGroup 15747 2 syms_9; AGroup 15749 2 syms_10; SGroup 8129 2 syms_12; SGroup 7100 3 syms_13;
     SGroup 10313 4 syms_14; AGroup 18454 5 syms_15; SGroup 9203 14 syms_17]);
   (200114, 20, [AGroup 5 1 [sym_ppDirective]; AGroup 15647 1 [anon_sym_LBRACK];
     AGroup 15653 1 [anon_sym_POUND]; AGroup 15667 1 [sym_kSpecialize];
     AGroup 15673 1 [sym_kInherited]; AGroup 15675 1 [sym_kString];
     AGroup 15745 1 [anon_sym_LPAREN]; AGroup 15755 1 [sym_kIf]; AGroup 3 2 syms_5;
     AGroup 15651 2 syms_6; AGroup 15655 2 syms_7; AGroup 15657 2 syms_8; AGroup 15669 2 syms_11;
     AGroup 15747 2 syms_9; AGroup 15749 2 syms_10; SGroup 8129 2 syms_12; SGroup 7100 3 syms_13;
     SGroup 10313 4 syms_14; AGroup 18456 5 syms_15; SGroup 9204 14 syms_17]);
   (200205, 20, [AGroup 5 1 [sym_ppDirective]; AGroup 15647 1 [anon_sym_LBRACK];
     AGroup 15653 1 [anon_sym_POUND]; AGroup 15667 1 [sym_kSpecialize];
     AGroup 15673 1 [sym_kInherited]; AGroup 15675 1 [sym_kString];
     AGroup 15745 1 [anon_sym_LPAREN]; AGroup 15755 1 [sym_kIf]; AGroup 3 2 syms_5;
     AGroup 15651 2 syms_6; AGroup 15655 2 syms_7; AGroup 15657 2 syms_8; AGroup 15669 2 syms_11;
     AGroup 15747 2 syms_9; AGroup 15749 2 syms_10; SGroup 8129 2 syms_12; SGroup 7100 3 syms_13;
     SGroup 10313 4 syms_14; AGroup 18458 5 syms_15; SGroup 9206 14 syms_17]);
   (200296, 20, [AGroup 5 1 [sym_ppDirective]; AGroup 15647 1 [anon_sym_LBRACK];
     AGroup 15653 1 [anon_sym_POUND]; AGroup 15667 1 [sym_kSpecialize];
     AGroup 15673 1 [sym_kInherited]; AGroup 15675 1 [sym_kString];
     AGroup 15745 1 [anon_sym_LPAREN]; AGroup 15755 1 [sym_kIf]; AGroup 3 2 syms_5;
     AGroup 15651 2 syms_6; AGroup 15655 2 syms_7; AGroup 15657 2 syms_8; AGroup 15669 2 syms_11;
     AGroup 15747 2 syms_9; AGroup 15749 2 syms_10; SGroup 8129 2 syms_12; SGroup 7100 3 syms_13;
     SGroup 10313 4 syms_14; AGroup 18460 5 syms_15; SGroup 9207 14 syms_17]);
   (200387, 20, [AGroup 5 1 [sym_ppDirective]; AGroup 15831 1 [anon_sym_LBRACK];
     AGroup 15833 1 [anon_sym_LPAREN]; AGroup 15837 1 [anon_sym_POUND];
     AGroup 15851 1 [sym_kSpecialize]; AGroup 15855 1 [sym_kIf]; AGroup 15857 1 [sym_kInherited];
     AGroup 17312 1 [sym_kString]; AGroup 3 2 syms_5; AGroup 15835 2 syms_6;
     AGroup 15839 2 syms_7; AGroup 15841 2 syms_8; AGroup 15843 2 syms_9; AGroup 15845 2 syms_10;
     AGroup 15853 2 syms_11; SGroup 9267 2 syms_12; SGroup 7556 3 syms_13; SGroup 8797 4 syms_14;
     AGroup 15847 5 syms_15; SGroup 8649 14 syms_17]);
   (200478, 20, [AGroup 5 1 [sym_ppDirective]; AGroup 15987 1 [anon_sym_LBRACK];
     AGroup 15989 1 [anon_sym_LPAREN]; AGroup 15993 1 [anon_sym_POUND];
     AGroup 16007 1 [sym_kSpecialize]; AGroup 16011 1 [sym_kIf]; AGroup 16013 1 [sym_kInherited];
     AGroup 18254 1 [sym_kString]; AGroup 3 2 syms_5; AGroup 15991 2 syms_6;
     AGroup 15995 2 syms_7; AGroup 15997 2 syms_8; AGroup 15999 2 syms_9; AGroup 16001 2 syms_10;
     AGroup 16009 2 syms_11; SGroup 9525 2 syms_12; SGroup 7769 3 syms_13;
     SGroup 10071 4 syms_14; AGroup 16003 5 syms_15; SGroup 9072 14 syms_17]);
   (200569, 20, [AGroup 5 1 [sym_ppDirective]; AGroup 15761 1 [anon_sym_LBRACK];
     AGroup 15763 1 [anon_sym_LPAREN]; AGroup 15767 1 [anon_sym_POUND];
     AGroup 15781 1 [sym_kSpecialize]; AGroup 15787 1 [sym_kInherited]; AGroup 16229 1 [sym_kIf];
     AGroup 17864 1 [sym_kString]; AGroup 3 2 syms_5; AGroup 15765 2 syms_6;
     AGroup 15769 2 syms_7; AGroup 15771 2 syms_8; AGroup 15783 2 syms_11; AGroup 16221 2 syms_9;
     AGroup 16223 2 syms_10; SGroup 9180 2 syms_12; SGroup 7467 3 syms_13;
     SGroup 10075 4 syms_14; AGroup 16225 5 syms_15; SGroup 9076 14 syms_17]);
   (200660, 20, [AGroup 5 1 [sym_ppDirective]; AGroup 16161 1 [anon_sym_LBRACK];
     AGroup 16163 1 [anon_sym_LPAREN]; AGroup 16167 1 [anon_sym_POUND];
     AGroup 16181 1 [sym_kSpecialize]; AGroup 16185 1 [sym_kIf]; AGroup 16187 1 [sym_kInherited];
     AGroup 17192 1 [sym_kString]; AGroup 3 2 syms_5; AGroup 16165 2 syms_6;
     AGroup 16169 2 syms_7; AGroup 16171 2 syms_8; AGroup 16173 2 syms_9; AGroup 16175 2 syms_10;
     AGroup 16183 2 syms_11; SGroup 8481 2 syms_12; SGroup 7166 3 syms_13; SGroup 8161 4 syms_14;
     AGroup 16177 5 syms_15; SGroup 8150 14 syms_17]);
   (200751, 20, [AGroup 5 1 [sym_ppDirective]; AGroup 15647 1 [anon_sym_LBRACK];
     AGroup 15653 1 [anon_sym_POUND]; AGroup 15667 1 [sym_kSpecialize];
     AGroup 15673 1 [sym_kInherited]; AGroup 15675 1 [sym_kString];
     AGroup 15745 1 [anon_sym_LPAREN]; AGroup 15755 1 [sym_kIf]; AGroup 3 2 syms_5;
     AGroup 15651 2 syms_6; AGroup 15655 2 syms_7; AGroup 15657 2 syms_8; AGroup 15669 2 syms_11;
     AGroup 15747 2 syms_9; AGroup 15749 2 syms_10; SGroup 8129 2 syms_12; SGroup 7100 3 syms_13;
     SGroup 10091 4 syms_14; AGroup 15751 5 syms_15; SGroup 8464 14 syms_17]);
   (200842, 31, [AGroup 5 1 [sym_ppDirective]; AGroup 13347 1 [anon_sym_LBRACK];
     AGroup 13351 1 [aux_sym_ppUsesBlock_token1]; AGroup 13365 1 [sym_identifier];
     AGroup 13367 1 [sym_kGeneric]; AGroup 13369 1 [sym_kOperator]; AGroup 13373 1 [sym_kStrict];
     AGroup 13377 1 [sym_kCase]; AGroup 13379 1 [sym_kClass]; AGroup 13391 1 [sym_kProperty];
     AGroup 13395 1 [sym_kType]; AGroup 18462 1 [anon_sym_SEMI]; AGroup 18464 1 [sym_kEnd];
     SGroup 2 1 [sym__ppIf]; SGroup 6354 1 [sym__visibility]; SGroup 9779 1 [sym_ppBlock];
     SGroup 9835 1 [sym__declOperator]; SGroup 10247 1 [sym__declProc];
     SGroup 10617 1 [sym_rttiAttributes]; SGroup 10730 1 [aux_sym_rttiAttributes_repeat2];
     SGroup 13987 1 [aux_sym_genericArg_repeat1]; SGroup 14434 1 [sym_declVariant];
     SGroup 14646 1 [sym__declClass]; AGroup 3 2 syms_5; AGroup 13381 2 syms_65;
     AGroup 13393 2 syms_66; SGroup 5685 2 syms_68; SGroup 10490 3 syms_69;
     AGroup 13383 4 syms_3; AGroup 13371 6 syms_70; SGroup 6150 6 syms_71]);
   (200955, 20, [AGroup 5 1 [sym_ppDirective]; AGroup 15755 1 [sym_kIf]; AGroup 16161 1 [anon_sym_LBRACK];
     AGroup 16163 1 [anon_sym_LPAREN]; AGroup 16167 1 [anon_sym_POUND];
     AGroup 16181 1 [sym_kSpecialize]; AGroup 16187 1 [sym_kInherited];
     AGroup 17192 1 [sym_kString]; AGroup 3 2 syms_5; AGroup 15747 2 syms_9;
     AGroup 15749 2 syms_10; AGroup 16165 2 syms_6; AGroup 16169 2 syms_7; AGroup 16171 2 syms_8;
     AGroup 16183 2 syms_11; SGroup 8481 2 syms_12; SGroup 7166 3 syms_13;
     SGroup 10345 4 syms_14; AGroup 18466 5 syms_15; SGroup 8163 14 syms_17]);
   (201046, 20, [AGroup 5 1 [sym_ppDirective]; AGroup 15647 1 [anon_sym_LBRACK];
     AGroup 15653 1 [anon_sym_POUND]; AGroup 15667 1 [sym_kSpecialize];
     AGroup 15673 1 [sym_kInherited]; AGroup 15675 1 [sym_kString];
     AGroup 15745 1 [anon_sym_LPAREN]; AGroup 15755 1 [sym_kIf]; AGroup 3 2 syms_5;
     AGroup 15651 2 syms_6; AGroup 15655 2 syms_7; AGroup 15657 2 syms_8; AGroup 15669 2 syms_11;
     AGroup 15747 2 syms_9; AGroup 15749 2 syms_10; SGroup 8129 2 syms_12; SGroup 7100 3 syms_13;
     SGroup 10172 4 syms_14; AGroup 15751 5 syms_15; SGroup 8464 14 syms_17]);
   (201137, 20, [AGroup 5 1 [sym_ppDirective]; AGroup 16405 1 [anon_sym_LBRACK];
     AGroup 16407 1 [anon_sym_LPAREN]; AGroup 16411 1 [anon_sym_POUND];
     AGroup 16425 1 [sym_kSpecialize]; AGroup 16429 1 [sym_kIf]; AGroup 16431 1 [sym_kInherited];
     AGroup 18223 1 [sym_kString]; AGroup 3 2 syms_5; AGroup 16409 2 syms_6;
     AGroup 16413 2 syms_7; AGroup 16415 2 syms_8; AGroup 16417 2 syms_9; AGroup 16419 2 syms_10;
     AGroup 16427 2 syms_11; SGroup 9247 2 syms_12; SGroup 7508 3 syms_13; SGroup 9654 4 syms_14;
     AGroup 16421 5 syms_15; SGroup 8844 14 syms_17]);
   (201228, 5, [AGroup 5 1 [sym_ppDirective]; AGroup 3 2 syms_5; AGroup 15504 4 syms_25;
     AGroup 15403 18 syms_36; AGroup 15502 25 syms_161]);
   (201289, 20, [AGroup 5 1 [sym_ppDirective]; AGroup 15831 1 [anon_sym_LBRACK];
     AGroup 15833 1 [anon_sym_LPAREN]; AGroup 15837 1 [anon_sym_POUND];
     AGroup 15851 1 [sym_kSpecialize]; AGroup 15855 1 [sym_kIf]; AGroup 15857 1 [sym_kInherited];
     AGroup 17312 1 [sym_kString]; AGroup 3 2 syms_5; AGroup 15835 2 syms_6;
     AGroup 15839 2 syms_7; AGroup 15841 2 syms_8; AGroup 15843 2 syms_9; AGroup 15845 2 syms_10;
     AGroup 15853 2 syms_11; SGroup 9267 2 syms_12; SGroup 7556 3 syms_13; SGroup 8827 4 syms_14;
     AGroup 15847 5 syms_15; SGroup 8649 14 syms_17]);
   (201380, 20, [AGroup 5 1 [sym_ppDirective]; AGroup 15761 1 [anon_sym_LBRACK];
     AGroup 15763 1 [anon_sym_LPAREN]; AGroup 15767 1 [anon_sym_POUND];
     AGroup 15781 1 [sym_kSpecialize]; AGroup 15787 1 [sym_kInherited]; AGroup 16229 1 [sym_kIf];
     AGroup 17864 1 [sym_kString]; AGroup 3 2 syms_5; AGroup 15765 2 syms_6;
     AGroup 15769 2 syms_7; AGroup 15771 2 syms_8; AGroup 15783 2 syms_11; AGroup 16221 2 syms_9;
     AGroup 16223 2 syms_10; SGroup 9180 2 syms_12; SGroup 7467 3 syms_13;
     SGroup 10218 4 syms_14; AGroup 16225 5 syms_15; SGroup 9076 14 syms_17]);
   (201471, 20, [AGroup 5 1 [sym_ppDirective]; AGroup 15761 1 [anon_sym_LBRACK];
     AGroup 15763 1 [anon_sym_LPAREN]; AGroup 15767 1 [anon_sym_POUND];
     AGroup 15781 1 [sym_kSpecialize]; AGroup 15787 1 [sym_kInherited]; AGroup 16229 1 [sym_kIf];
     AGroup 17864 1 [sym_kString]; AGroup 3 2 syms_5; AGroup 15765 2 syms_6;
     AGroup 15769 2 syms_7; AGroup 15771 2 syms_8; AGroup 15783 2 syms_11; AGroup 16221 2 syms_9;
     AGroup 16223 2 syms_10; SGroup 9180 2 syms_12; SGroup 7467 3 syms_13;
     SGroup 10219 4 syms_14; AGroup 16225 5 syms_15; SGroup 9076 14 syms_17]);
   (201562, 20, [AGroup 5 1 [sym_ppDirective]; AGroup 16715 1 [anon_sym_LBRACK];
     AGroup 16717 1 [anon_sym_LPAREN]; AGroup 16721 1 [anon_sym_POUND];
     AGroup 16735 1 [sym_kSpecialize]; AGroup 16739 1 [sym_kIf]; AGroup 16741 1 [sym_kInherited];
     AGroup 18201 1 [sym_kString]; AGroup 3 2 syms_5; AGroup 16719 2 syms_6;
     AGroup 16723 2 syms_7; AGroup 16725 2 syms_8; AGroup 16727 2 syms_9; AGroup 16729 2 syms_10;
     AGroup 16737 2 syms_11; SGroup 7901 2 syms_12; SGroup 7014 3 syms_13; SGroup 8421 4 syms_14;
     AGroup 16731 5 syms_15; SGroup 7757 14 syms_17]);
   (201653, 20, [AGroup 5 1 [sym_ppDirective]; AGroup 9986 1 [anon_sym_LBRACK];
     AGroup 9988 1 [anon_sym_LPAREN]; AGroup 9992 1 [anon_sym_POUND];
     AGroup 10008 1 [sym_kSpecialize]; AGroup 10026 1 [sym_kInherited];
     AGroup 10032 1 [sym_kString]; AGroup 15588 1 [sym_kIf]; AGroup 3 2 syms_5;
     AGroup 9990 2 syms_6; AGroup 9994 2 syms_7; AGroup 9996 2 syms_8; AGroup 9998 2 syms_9;
     AGroup 10000 2 syms_10; AGroup 10020 2 syms_11; SGroup 7660 2 syms_12;
     SGroup 6967 3 syms_13; SGroup 7450 4 syms_14; AGroup 10002 5 syms_15; SGroup 7363 14 syms_17]);
   (201744, 5, [AGroup 5 1 [sym_ppDirective]; AGroup 3 2 syms_5; AGroup 15484 4 syms_25;
     AGroup 15403 18 syms_36; AGroup 15482 25 syms_161]);
   (201805, 20, [AGroup 5 1 [sym_ppDirective]; AGroup 16161 1 [anon_sym_LBRACK];
     AGroup 16163 1 [anon_sym_LPAREN]; AGroup 16167 1 [anon_sym_POUND];
     AGroup 16181 1 [sym_kSpecialize]; AGroup 16185 1 [sym_kIf]; AGroup 16187 1 [sym_kInherited];
     AGroup 17192 1 [sym_kString]; AGroup 3 2 syms_5; AGroup 16165 2 syms_6;
     AGroup 16169 2 syms_7; AGroup 16171 2 syms_8; AGroup 16173 2 syms_9; AGroup 16175 2 syms_10;
     AGroup 16183 2 syms_11; SGroup 8481 2 syms_12; SGroup 7166 3 syms_13; SGroup 8169 4 syms_14;
     AGroup 16177 5 syms_15; SGroup 8150 14 syms_17]);
   (201896, 20, [AGroup 5 1 [sym_ppDirective]; AGroup 15831 1 [anon_sym_LBRACK];
     AGroup 15833 1 [anon_sym_LPAREN]; AGroup 15837 1 [anon_sym_POUND];
     AGroup 15851 1 [sym_kSpecialize]; AGroup 15855 1 [sym_kIf]; AGroup 15857 1 [sym_kInherited];
     AGroup 17312 1 [sym_kString]; AGroup 3 2 syms_5; AGroup 15835 2 syms_6;
     AGroup 15839 2 syms_7; AGroup 15841 2 syms_8; AGroup 15843 2 syms_9; AGroup 15845 2 syms_10;
     AGroup 15853 2 syms_11; SGroup 9267 2 syms_12; SGroup 7556 3 syms_13;
     SGroup 10229 4 syms_14; AGroup 15847 5 syms_15; SGroup 8649 14 syms_17]);
   (201987, 20, [AGroup 5 1 [sym_ppDirective]; AGroup 15647 1 [anon_sym_LBRACK];
     AGroup 15653 1 [anon_sym_POUND]; AGroup 15667 1 [sym_kSpecialize];
     AGroup 15673 1 [sym_kInherited]; AGroup 15675 1 [sym_kString];
     AGroup 15745 1 [anon_sym_LPAREN]; AGroup 15755 1 [sym_kIf]; AGroup 3 2 syms_5;
     AGroup 15651 2 syms_6; AGroup 15655 2 syms_7; AGroup 15657 2 syms_8; AGroup 15669 2 syms_11;
     AGroup 15747 2 syms_9; AGroup 15749 2 syms_10; SGroup 8129 2 syms_12; SGroup 7100 3 syms_13;
     SGroup 10232 4 syms_14; AGroup 15751 5 syms_15; SGroup 8464 14 syms_17]);
   (202078, 20, [AGroup 5 1 [sym_ppDirective]; AGroup 15647 1 [anon_sym_LBRACK];
     AGroup 15653 1 [anon_sym_POUND]; AGroup 15667 1 [sym_kSpecialize];
     AGroup 15673 1 [sym_kInherited]; AGroup 15675 1 [sym_kString];
     AGroup 15745 1 [anon_sym_LPAREN]; AGroup 15755 1 [sym_kIf]; AGroup 3 2 syms_5;
     AGroup 15651 2 syms_6; AGroup 15655 2 syms_7; AGroup 15657 2 syms_8; AGroup 15669 2 syms_11;
     AGroup 15747 2 syms_9; AGroup 15749 2 syms_10; SGroup 8129 2 syms_12; SGroup 7100 3 syms_13;
     SGroup 10235 4 syms_14; AGroup 15751 5 syms_15; SGroup 8464 14 syms_17]);
   (202169, 20, [AGroup 5 1 [sym_ppDirective]; AGroup 16405 1 [anon_sym_LBRACK];
     AGroup 16407 1 [anon_sym_LPAREN]; AGroup 16411 1 [anon_sym_POUND];
     AGroup 16425 1 [sym_kSpecialize]; AGroup 16429 1 [sym_kIf]; AGroup 16431 1 [sym_kInherited];
     AGroup 18223 1 [sym_kString]; AGroup 3 2 syms_5; AGroup 16409 2 syms_6;
     AGroup 16413 2 syms_7; AGroup 16415 2 syms_8; AGroup 16417 2 syms_9; AGroup 16419 2 syms_10;
     AGroup 16427 2 syms_11; SGroup 9247 2 syms_12; SGroup 7508 3 syms_13; SGroup 9677 4 syms_14;
     AGroup 16421 5 syms_15; SGroup 8844 14 syms_17]);
   (202260, 20, [AGroup 5 1 [sym_ppDirective]; AGroup 9986 1 [anon_sym_LBRACK];
     AGroup 9988 1 [anon_sym_LPAREN]; AGroup 9992 1 [anon_sym_POUND];
     AGroup 10008 1 [sym_kSpecialize]; AGroup 10026 1 [sym_kInherited];
     AGroup 10032 1 [sym_kString]; AGroup 15588 1 [sym_kIf]; AGroup 3 2 syms_5;
     AGroup 9990 2 syms_6; AGroup 9994 2 syms_7; AGroup 9996 2 syms_8; AGroup 9998 2 syms_9;
     AGroup 10000 2 syms_10; AGroup 10020 2 syms_11; SGroup 7660 2 syms_12;
     SGroup 6967 3 syms_13; SGroup 7385 4 syms_14; AGroup 10002 5 syms_15; SGroup 7363 14 syms_17]);
   (202351, 20, [AGroup 5 1 [sym_ppDirective]; AGroup 9986 1 [anon_sym_LBRACK];
     AGroup 9988 1 [anon_sym_LPAREN]; AGroup 9992 1 [anon_sym_POUND];
     AGroup 10008 1 [sym_kSpecialize]; AGroup 10026 1 [sym_kInherited];
     AGroup 10032 1 [sym_kString]; AGroup 15588 1 [sym_kIf]; AGroup 3 2 syms_5;
     AGroup 9990 2 syms_6; AGroup 9994 2 syms_7; AGroup 9996 2 syms_8; AGroup 9998 2 syms_9;
     AGroup 10000 2 syms_10; AGroup 10020 2 syms_11; SGroup 7660 2 syms_12;
     SGroup 6967 3 syms_13; SGroup 7402 4 syms_14; AGroup 10002 5 syms_15; SGroup 7363 14 syms_17])
  ].

(** States 4959 to 5058. *)
Definition small_runs_4959 : list small_run :=
  [
   (202442, 20, [AGroup 5 1 [sym_ppDirective]; AGroup 15647 1 [anon_sym_LBRACK];
     AGroup 15653 1 [anon_sym_POUND]; AGroup 15667 1 [sym_kSpecialize];
     AGroup 15673 1 [sym_kInherited]; AGroup 15675 1 [sym_kString];
     AGroup 15745 1 [anon_sym_LPAREN]; AGroup 15755 1 [sym_kIf]; AGroup 3 2 syms_5;
     AGroup 15651 2 syms_6; AGroup 15655 2 syms_7; AGroup 15657 2 syms_8; AGroup 15669 2 syms_11;
     AGroup 15747 2 syms_9; AGroup 15749 2 syms_10; SGroup 8129 2 syms_12; SGroup 7100 3 syms_13;
     SGroup 10313 4 syms_14; AGroup 18468 5 syms_15; SGroup 9262 14 syms_17]);
   (202533, 20, [AGroup 5 1 [sym_ppDirective]; AGroup 15647 1 [anon_sym_LBRACK];
     AGroup 15653 1 [anon_sym_POUND]; AGroup 15667 1 [sym_kSpecialize];
     AGroup 15673 1 [sym_kInherited]; AGroup 15675 1 [sym_kString];
     AGroup 15745 1 [anon_sym_LPAREN]; AGroup 15755 1 [sym_kIf]; AGroup 3 2 syms_5;
     AGroup 15651 2 syms_6; AGroup 15655 2 syms_7; AGroup 15657 2 syms_8; AGroup 15669 2 syms_11;
     AGroup 15747 2 syms_9; AGroup 15749 2 syms_10; SGroup 8129 2 syms_12; SGroup 7100 3 syms_13;
     SGroup 10313 4 syms_14; AGroup 18470 5 syms_15; SGroup 9263 14 syms_17]);
   (202624, 20, [AGroup 5 1 [sym_ppDirective]; AGroup 9986 1 [anon_sym_LBRACK];
     AGroup 9988 1 [anon_sym_LPAREN]; AGroup 9992 1 [anon_sym_POUND];
     AGroup 10008 1 [sym_kSpecialize]; AGroup 10026 1 [sym_kInherited];
     AGroup 10032 1 [sym_kString]; AGroup 15588 1 [sym_kIf]; AGroup 3 2 syms_5;
     AGroup 9990 2 syms_6; AGroup 9994 2 syms_7; AGroup 9996 2 syms_8; AGroup 9998 2 syms_9;
     AGroup 10000 2 syms_10; AGroup 10020 2 syms_11; SGroup 7660 2 syms_12;
     SGroup 6967 3 syms_13; SGroup 7501 4 syms_14; AGroup 10002 5 syms_15; SGroup 7363 14 syms_17]);
   (202715, 21, [AGroup 5 1 [sym_ppDirective]; AGroup 9986 1 [anon_sym_LBRACK];
     AGroup 9988 1 [anon_sym_LPAREN]; AGroup 9992 1 [anon_sym_POUND]; AGroup 10000 1 [sym_kAt];
     AGroup 10008 1 [sym_kSpecialize]; AGroup 10026 1 [sym_kInherited];
     AGroup 10032 1 [sym_kString]; AGroup 15588 1 [sym_kIf]; AGroup 18472 1 [sym_kNot];
     AGroup 3 2 syms_5; AGroup 9990 2 syms_6; AGroup 9994 2 syms_7; AGroup 9996 2 syms_8;
     AGroup 9998 2 syms_9; AGroup 10020 2 syms_11; SGroup 7660 2 syms_12; SGroup 6967 3 syms_13;
     SGroup 7501 4 syms_14; AGroup 10002 5 syms_15; SGroup 7363 14 syms_17]);
   (202808, 20, [AGroup 5 1 [sym_ppDirective]; AGroup 9986 1 [anon_sym_LBRACK];
     AGroup 9988 1 [anon_sym_LPAREN]; AGroup 9992 1 [anon_sym_POUND];
     AGroup 10008 1 [sym_kSpecialize]; AGroup 10026 1 [sym_kInherited];
     AGroup 10032 1 [sym_kString]; AGroup 15588 1 [sym_kIf]; AGroup 3 2 syms_5;
     AGroup 9990 2 syms_6; AGroup 9994 2 syms_7; AGroup 9996 2 syms_8; AGroup 9998 2 syms_9;
     AGroup 10000 2 syms_10; AGroup 10020 2 syms_11; SGroup 7660 2 syms_12;
     SGroup 6967 3 syms_13; SGroup 7464 4 syms_14; AGroup 10002 5 syms_15; SGroup 7363 14 syms_17]);
   (202899, 20, [AGroup 5 1 [sym_ppDirective]; AGroup 9986 1 [anon_sym_LBRACK];
     AGroup 9988 1 [anon_sym_LPAREN]; AGroup 9992 1 [anon_sym_POUND];
     AGroup 10008 1 [sym_kSpecialize]; AGroup 10026 1 [sym_kInherited];
     AGroup 10032 1 [sym_kString]; AGroup 15755 1 [sym_kIf]; AGroup 3 2 syms_5;
     AGroup 9990 2 syms_6; AGroup 9994 2 syms_7; AGroup 9996 2 syms_8; AGroup 10020 2 syms_11;
     AGroup 15747 2 syms_9; AGroup 15749 2 syms_10; SGroup 7660 2 syms_12; SGroup 6967 3 syms_13;
     SGroup 10293 4 syms_14; AGroup 18474 5 syms_15; SGroup 7377 14 syms_17]);
   (202990, 20, [AGroup 5 1 [sym_ppDirective]; AGroup 15647 1 [anon_sym_LBRACK];
     AGroup 15653 1 [anon_sym_POUND]; AGroup 15667 1 [sym_kSpecialize];
     AGroup 15673 1 [sym_kInherited]; AGroup 15675 1 [sym_kString];
     AGroup 15745 1 [anon_sym_LPAREN]; AGroup 15755 1 [sym_kIf]; AGroup 3 2 syms_5;
     AGroup 15651 2 syms_6; AGroup 15655 2 syms_7; AGroup 15657 2 syms_8; AGroup 15669 2 syms_11;
     AGroup 15747 2 syms_9; AGroup 15749 2 syms_10; SGroup 8129 2 syms_12; SGroup 7100 3 syms_13;
     SGroup 10313 4 syms_14; AGroup 18476 5 syms_15; SGroup 9268 14 syms_17]);
   (203081, 20, [AGroup 5 1 [sym_ppDirective]; AGroup 15647 1 [anon_sym_LBRACK];
     AGroup 15653 1 [anon_sym_POUND]; AGroup 15667 1 [sym_kSpecialize];
     AGroup 15673 1 [sym_kInherited]; AGroup 15675 1 [sym_kString];
     AGroup 15745 1 [anon_sym_LPAREN]; AGroup 15755 1 [sym_kIf]; AGroup 3 2 syms_5;
     AGroup 15651 2 syms_6; AGroup 15655 2 syms_7; AGroup 15657 2 syms_8; AGroup 15669 2 syms_11;
     AGroup 15747 2 syms_9; AGroup 15749 2 syms_10; SGroup 8129 2 syms_12; SGroup 7100 3 syms_13;
     SGroup 10313 4 syms_14; AGroup 18478 5 syms_15; SGroup 9269 14 syms_17]);
   (203172, 20, [AGroup 5 1 [sym_ppDirective]; AGroup 15647 1 [anon_sym_LBRACK];
     AGroup 15653 1 [anon_sym_POUND]; AGroup 15667 1 [sym_kSpecialize];
     AGroup 15673 1 [sym_kInherited]; AGroup 15675 1 [sym_kString];
     AGroup 15745 1 [anon_sym_LPAREN]; AGroup 15755 1 [sym_kIf]; AGroup 3 2 syms_5;
     AGroup 15651 2 syms_6; AGroup 15655 2 syms_7; AGroup 15657 2 syms_8; AGroup 15669 2 syms_11;
     AGroup 15747 2 syms_9; AGroup 15749 2 syms_10; SGroup 8129 2 syms_12; SGroup 7100 3 syms_13;
     SGroup 10313 4 syms_14; AGroup 18480 5 syms_15; SGroup 9271 14 syms_17]);
   (203263, 20, [AGroup 5 1 [sym_ppDirective]; AGroup 15647 1 [anon_sym_LBRACK];
     AGroup 15653 1 [anon_sym_POUND]; AGroup 15667 1 [sym_kSpecialize];
     AGroup 15673 1 [sym_kInherited]; AGroup 15675 1 [sym_kString];
     AGroup 15745 1 [anon_sym_LPAREN]; AGroup 15755 1 [sym_kIf]; AGroup 3 2 syms_5;
     AGroup 15651 2 syms_6; AGroup 15655 2 syms_7; AGroup 15657 2 syms_8; AGroup 15669 2 syms_11;
     AGroup 15747 2 syms_9; AGroup 15749 2 syms_10; SGroup 8129 2 syms_12; SGroup 7100 3 syms_13;
     SGroup 10313 4 syms_14; AGroup 18482 5 syms_15; SGroup 9278 14 syms_17]);
   (203354, 31, [AGroup 5 1 [sym_ppDirective]; AGroup 13347 1 [anon_sym_LBRACK];
     AGroup 13351 1 [aux_sym_ppUsesBlock_token1]; AGroup 13365 1 [sym_identifier];
     AGroup 13367 1 [sym_kGeneric]; AGroup 13369 1 [sym_kOperator]; AGroup 13373 1 [sym_kStrict];
     AGroup 13377 1 [sym_kCase]; AGroup 13379 1 [sym_kClass]; AGroup 13391 1 [sym_kProperty];
     AGroup 13395 1 [sym_kType]; AGroup 18484 1 [anon_sym_SEMI]; AGroup 18486 1 [sym_kEnd];
     SGroup 2 1 [sym__ppIf]; SGroup 6354 1 [sym__visibility]; SGroup 9779 1 [sym_ppBlock];
     SGroup 9835 1 [sym__declOperator]; SGroup 10247 1 [sym__declProc];
     SGroup 10617 1 [sym_rttiAttributes]; SGroup 10730 1 [aux_sym_rttiAttributes_repeat2];
     SGroup 13987 1 [aux_sym_genericArg_repeat1]; SGroup 14434 1 [sym_declVariant];
     SGroup 15999 1 [sym__declClass]; AGroup 3 2 syms_5; AGroup 13381 2 syms_65;
     AGroup 13393 2 syms_66; SGroup 5685 2 syms_68; SGroup 10490 3 syms_69;
     AGroup 13383 4 syms_3; AGroup 13371 6 syms_70; SGroup 6150 6 syms_71]);
   (203467, 5, [AGroup 5 1 [sym_ppDirective]; AGroup 3 2 syms_5; AGroup 15492 4 syms_25;
     AGroup 15403 18 syms_36; AGroup 15490 25 syms_161]);
   (203528, 20, [AGroup 5 1 [sym_ppDirective]; AGroup 15647 1 [anon_sym_LBRACK];
     AGroup 15653 1 [anon_sym_POUND]; AGroup 15667 1 [sym_kSpecialize];
     AGroup 15673 1 [sym_kInherited]; AGroup 15675 1 [sym_kString];
     AGroup 15745 1 [anon_sym_LPAREN]; AGroup 15755 1 [sym_kIf]; AGroup 3 2 syms_5;
     AGroup 15651 2 syms_6; AGroup 15655 2 syms_7; AGroup 15657 2 syms_8; AGroup 15669 2 syms_11;
     AGroup 15747 2 syms_9; AGroup 15749 2 syms_10; SGroup 8129 2 syms_12; SGroup 7100 3 syms_13;
     SGroup 10313 4 syms_14; AGroup 18488 5 syms_15; SGroup 9286 14 syms_17]);
   (203619, 20, [AGroup 5 1 [sym_ppDirective]; AGroup 15647 1 [anon_sym_LBRACK];
     AGroup 15653 1 [anon_sym_POUND]; AGroup 15667 1 [sym_kSpecialize];
     AGroup 15673 1 [sym_kInherited]; AGroup 15675 1 [sym_kString];
     AGroup 15745 1 [anon_sym_LPAREN]; AGroup 15755 1 [sym_kIf]; AGroup 3 2 syms_5;
     AGroup 15651 2 syms_6; AGroup 15655 2 syms_7; AGroup 15657 2 syms_8; AGroup 15669 2 syms_11;
     AGroup 15747 2 syms_9; AGroup 15749 2 syms_10; SGroup 8129 2 syms_12; SGroup 7100 3 syms_13;
     SGroup 10313 4 syms_14; AGroup 18490 5 syms_15; SGroup 9287 14 syms_17]);
   (203710, 5, [AGroup 5 1 [sym_ppDirective]; AGroup 3 2 syms_5; AGroup 15401 4 syms_25;
     AGroup 15403 18 syms_36; AGroup 15399 25 syms_161]);
   (203771, 20, [AGroup 5 1 [sym_ppDirective]; AGroup 9986 1 [anon_sym_LBRACK];
     AGroup 9988 1 [anon_sym_LPAREN]; AGroup 9992 1 [anon_sym_POUND];
     AGroup 10008 1 [sym_kSpecialize]; AGroup 10026 1 [sym_kInherited];
     AGroup 10032 1 [sym_kString]; AGroup 15588 1 [sym_kIf]; AGroup 3 2 syms_5;
     AGroup 9990 2 syms_6; AGroup 9994 2 syms_7; AGroup 9996 2 syms_8; AGroup 9998 2 syms_9;
     AGroup 10000 2 syms_10; AGroup 10020 2 syms_11; SGroup 7660 2 syms_12;
     SGroup 6967 3 syms_13; SGroup 7378 4 syms_14; AGroup 10002 5 syms_15; SGroup 7363 14 syms_17]);
   (203862, 20, [AGroup 5 1 [sym_ppDirective]; AGroup 15987 1 [anon_sym_LBRACK];
     AGroup 15989 1 [anon_sym_LPAREN]; AGroup 15993 1 [anon_sym_POUND];
     AGroup 16007 1 [sym_kSpecialize]; AGroup 16011 1 [sym_kIf]; AGroup 16013 1 [sym_kInherited];
     AGroup 18254 1 [sym_kString]; AGroup 3 2 syms_5; AGroup 15991 2 syms_6;
     AGroup 15995 2 syms_7; AGroup 15997 2 syms_8; AGroup 15999 2 syms_9; AGroup 16001 2 syms_10;
     AGroup 16009 2 syms_11; SGroup 9525 2 syms_12; SGroup 7769 3 syms_13; SGroup 9874 4 syms_14;
     AGroup 16003 5 syms_15; SGroup 9072 14 syms_17]);
   (203953, 20, [AGroup 5 1 [sym_ppDirective]; AGroup 15761 1 [anon_sym_LBRACK];
     AGroup 15763 1 [anon_sym_LPAREN]; AGroup 15767 1 [anon_sym_POUND];
     AGroup 15781 1 [sym_kSpecialize]; AGroup 15787 1 [sym_kInherited]; AGroup 16229 1 [sym_kIf];
     AGroup 17864 1 [sym_kString]; AGroup 3 2 syms_5; AGroup 15765 2 syms_6;
     AGroup 15769 2 syms_7; AGroup 15771 2 syms_8; AGroup 15783 2 syms_11; AGroup 16221 2 syms_9;
     AGroup 16223 2 syms_10; SGroup 9180 2 syms_12; SGroup 7467 3 syms_13; SGroup 9876 4 syms_14;
     AGroup 16225 5 syms_15; SGroup 9076 14 syms_17]);
   (204044, 5, [AGroup 5 1 [sym_ppDirective]; AGroup 3 2 syms_5; AGroup 15439 4 syms_25;
     AGroup 15403 18 syms_36; AGroup 15437 25 syms_161]);
   (204105, 20, [AGroup 5 1 [sym_ppDirective]; AGroup 15647 1 [anon_sym_LBRACK];
     AGroup 15653 1 [anon_sym_POUND]; AGroup 15667 1 [sym_kSpecialize];
     AGroup 15673 1 [sym_kInherited]; AGroup 15675 1 [sym_kString];
     AGroup 15745 1 [anon_sym_LPAREN]; AGroup 15755 1 [sym_kIf]; AGroup 3 2 syms_5;
     AGroup 15651 2 syms_6; AGroup 15655 2 syms_7; AGroup 15657 2 syms_8; AGroup 15669 2 syms_11;
     AGroup 15747 2 syms_9; AGroup 15749 2 syms_10; SGroup 8129 2 syms_12; SGroup 7100 3 syms_13;
     SGroup 9879 4 syms_14; AGroup 15751 5 syms_15; SGroup 8464 14 syms_17]);
   (204196, 5, [AGroup 5 1 [sym_ppDirective]; AGroup 3 2 syms_5; AGroup 15473 4 syms_25;
     AGroup 15403 18 syms_36; AGroup 15471 25 syms_154]);
   (204257, 5, [AGroup 5 1 [sym_ppDirective]; AGroup 3 2 syms_5; AGroup 15488 4 syms_25;
     AGroup 15403 18 syms_36; AGroup 15486 25 syms_161]);
   (204318, 20, [AGroup 5 1 [sym_ppDirective]; AGroup 15647 1 [anon_sym_LBRACK];
     AGroup 15653 1 [anon_sym_POUND]; AGroup 15667 1 [sym_kSpecialize];
     AGroup 15673 1 [sym_kInherited]; AGroup 15675 1 [sym_kString];
     AGroup 15745 1 [anon_sym_LPAREN]; AGroup 15755 1 [sym_kIf]; AGroup 3 2 syms_5;
     AGroup 15651 2 syms_6; AGroup 15655 2 syms_7; AGroup 15657 2 syms_8; AGroup 15669 2 syms_11;
     AGroup 15747 2 syms_9; AGroup 15749 2 syms_10; SGroup 8129 2 syms_12; SGroup 7100 3 syms_13;
     SGroup 9900 4 syms_14; AGroup 15751 5 syms_15; SGroup 8464 14 syms_17]);
   (204409, 20, [AGroup 5 1 [sym_ppDirective]; AGroup 16405 1 [anon_sym_LBRACK];
     AGroup 16407 1 [anon_sym_LPAREN]; AGroup 16411 1 [anon_sym_POUND];
     AGroup 16425 1 [sym_kSpecialize]; AGroup 16429 1 [sym_kIf]; AGroup 16431 1 [sym_kInherited];
     AGroup 18223 1 [sym_kString]; AGroup 3 2 syms_5; AGroup 16409 2 syms_6;
     AGroup 16413 2 syms_7; AGroup 16415 2 syms_8; AGroup 16417 2 syms_9; AGroup 16419 2 syms_10;
     AGroup 16427 2 syms_11; SGroup 9247 2 syms_12; SGroup 7508 3 syms_13; SGroup 9789 4 syms_14;
     AGroup 16421 5 syms_15; SGroup 8844 14 syms_17]);
   (204500, 20, [AGroup 5 1 [sym_ppDirective]; AGroup 16161 1 [anon_sym_LBRACK];
     AGroup 16163 1 [anon_sym_LPAREN]; AGroup 16167 1 [anon_sym_POUND];
     AGroup 16181 1 [sym_kSpecialize]; AGroup 16185 1 [sym_kIf]; AGroup 16187 1 [sym_kInherited];
     AGroup 17192 1 [sym_kString]; AGroup 3 2 syms_5; AGroup 16165 2 syms_6;
     AGroup 16169 2 syms_7; AGroup 16171 2 syms_8; AGroup 16173 2 syms_9; AGroup 16175 2 syms_10;
     AGroup 16183 2 syms_11; SGroup 8481 2 syms_12; SGroup 7166 3 syms_13; SGroup 8171 4 syms_14;
     AGroup 16177 5 syms_15; SGroup 8150 14 syms_17]);
   (204591, 20, [AGroup 5 1 [sym_ppDirective]; AGroup 15987 1 [anon_sym_LBRACK];
     AGroup 15989 1 [anon_sym_LPAREN]; AGroup 15993 1 [anon_sym_POUND];
     AGroup 16007 1 [sym_kSpecialize]; AGroup 16011 1 [sym_kIf]; AGroup 16013 1 [sym_kInherited];
     AGroup 18254 1 [sym_kString]; AGroup 3 2 syms_5; AGroup 15991 2 syms_6;
     AGroup 15995 2 syms_7; AGroup 15997 2 syms_8; AGroup 15999 2 syms_9; AGroup 16001 2 syms_10;
     AGroup 16009 2 syms_11; SGroup 9525 2 syms_12; SGroup 7769 3 syms_13; SGroup 9292 4 syms_14;
     AGroup 16003 5 syms_15; SGroup 9072 14 syms_17]);
   (204682, 20, [AGroup 5 1 [sym_ppDirective]; AGroup 15761 1 [anon_sym_LBRACK];
     AGroup 15763 1 [anon_sym_LPAREN]; AGroup 15767 1 [anon_sym_POUND];
     AGroup 15781 1 [sym_kSpecialize]; AGroup 15787 1 [sym_kInherited]; AGroup 16229 1 [sym_kIf];
     AGroup 17864 1 [sym_kString]; AGroup 3 2 syms_5; AGroup 15765 2 syms_6;
     AGroup 15769 2 syms_7; AGroup 15771 2 syms_8; AGroup 15783 2 syms_11; AGroup 16221 2 syms_9;
     AGroup 16223 2 syms_10; SGroup 9180 2 syms_12; SGroup 7467 3 syms_13; SGroup 9914 4 syms_14;
     AGroup 16225 5 syms_15; SGroup 9076 14 syms_17]);
   (204773, 20, [AGroup 5 1 [sym_ppDirective]; AGroup 15761 1 [anon_sym_LBRACK];
     AGroup 15763 1 [anon_sym_LPAREN]; AGroup 15767 1 [anon_sym_POUND];
     AGroup 15781 1 [sym_kSpecialize]; AGroup 15787 1 [sym_kInherited]; AGroup 16229 1 [sym_kIf];
     AGroup 17864 1 [sym_kString]; AGroup 3 2 syms_5; AGroup 15765 2 syms_6;
     AGroup 15769 2 syms_7; AGroup 15771 2 syms_8; AGroup 15783 2 syms_11; AGroup 16221 2 syms_9;
     AGroup 16223 2 syms_10; SGroup 9180 2 syms_12; SGroup 7467 3 syms_13; SGroup 9916 4 syms_14;
     AGroup 16225 5 syms_15; SGroup 9076 14 syms_17]);
   (204864, 20, [AGroup 5 1 [sym_ppDirective]; AGroup 16715 1 [anon_sym_LBRACK];
     AGroup 16717 1 [anon_sym_LPAREN]; AGroup 16721 1 [anon_sym_POUND];
     AGroup 16735 1 [sym_kSpecialize]; AGroup 16739 1 [sym_kIf]; AGroup 16741 1 [sym_kInherited];
     AGroup 18201 1 [sym_kString]; AGroup 3 2 syms_5; AGroup 16719 2 syms_6;
     AGroup 16723 2 syms_7; AGroup 16725 2 syms_8; AGroup 16727 2 syms_9; AGroup 16729 2 syms_10;
     AGroup 16737 2 syms_11; SGroup 7901 2 syms_12; SGroup 7014 3 syms_13; SGroup 8449 4 syms_14;
     AGroup 16731 5 syms_15; SGroup 7757 14 syms_17]);
   (204955, 20, [AGroup 5 1 [sym_ppDirective]; AGroup 15831 1 [anon_sym_LBRACK];
     AGroup 15833 1 [anon_sym_LPAREN]; AGroup 15837 1 [anon_sym_POUND];
     AGroup 15851 1 [sym_kSpecialize]; AGroup 15855 1 [sym_kIf]; AGroup 15857 1 [sym_kInherited];
     AGroup 17312 1 [sym_kString]; AGroup 3 2 syms_5; AGroup 15835 2 syms_6;
     AGroup 15839 2 syms_7; AGroup 15841 2 syms_8; AGroup 15843 2 syms_9; AGroup 15845 2 syms_10;
     AGroup 15853 2 syms_11; SGroup 9267 2 syms_12; SGroup 7556 3 syms_13;
     SGroup 10234 4 syms_14; AGroup 15847 5 syms_15; SGroup 8649 14 syms_17]);
   (205046, 20, [AGroup 5 1 [sym_ppDirective]; AGroup 15647 1 [anon_sym_LBRACK];
     AGroup 15653 1 [anon_sym_POUND]; AGroup 15667 1 [sym_kSpecialize];
     AGroup 15673 1 [sym_kInherited]; AGroup 15675 1 [sym_kString];
     AGroup 15745 1 [anon_sym_LPAREN]; AGroup 15755 1 [sym_kIf]; AGroup 3 2 syms_5;
     AGroup 15651 2 syms_6; AGroup 15655 2 syms_7; AGroup 15657 2 syms_8; AGroup 15669 2 syms_11;
     AGroup 15747 2 syms_9; AGroup 15749 2 syms_10; SGroup 8129 2 syms_12; SGroup 7100 3 syms_13;
     SGroup 9926 4 syms_14; AGroup 15751 5 syms_15; SGroup 8464 14 syms_17]);
   (205137, 20, [AGroup 5 1 [sym_ppDirective]; AGroup 15647 1 [anon_sym_LBRACK];
     AGroup 15653 1 [anon_sym_POUND]; AGroup 15667 1 [sym_kSpecialize];
     AGroup 15673 1 [sym_kInherited]; AGroup 15675 1 [sym_kString];
     AGroup 15745 1 [anon_sym_LPAREN]; AGroup 15755 1 [sym_kIf]; AGroup 3 2 syms_5;
     AGroup 15651 2 syms_6; AGroup 15655 2 syms_7; AGroup 15657 2 syms_8; AGroup 15669 2 syms_11;
     AGroup 15747 2 syms_9; AGroup 15749 2 syms_10; SGroup 8129 2 syms_12; SGroup 7100 3 syms_13;
     SGroup 9927 4 syms_14; AGroup 15751 5 syms_15; SGroup 8464 14 syms_17]);
   (205228, 20, [AGroup 5 1 [sym_ppDirective]; AGroup 9986 1 [anon_sym_LBRACK];
     AGroup 9988 1 [anon_sym_LPAREN]; AGroup 9992 1 [anon_sym_POUND];
     AGroup 10008 1 [sym_kSpecialize]; AGroup 10026 1 [sym_kInherited];
     AGroup 10032 1 [sym_kString]; AGroup 15588 1 [sym_kIf]; AGroup 3 2 syms_5;
     AGroup 9990 2 syms_6; AGroup 9994 2 syms_7; AGroup 9996 2 syms_8; AGroup 9998 2 syms_9;
     AGroup 10000 2 syms_10; AGroup 10020 2 syms_11; SGroup 7660 2 syms_12;
     SGroup 6967 3 syms_13; SGroup 7381 4 syms_14; AGroup 10002 5 syms_15; SGroup 7363 14 syms_17]);
   (205319, 20, [AGroup 5 1 [sym_ppDirective]; AGroup 16405 1 [anon_sym_LBRACK];
     AGroup 16407 1 [anon_sym_LPAREN]; AGroup 16411 1 [anon_sym_POUND];
     AGroup 16425 1 [sym_kSpecialize]; AGroup 16429 1 [sym_kIf]; AGroup 16431 1 [sym_kInherited];
     AGroup 18223 1 [sym_kString]; AGroup 3 2 syms_5; AGroup 16409 2 syms_6;
     AGroup 16413 2 syms_7; AGroup 16415 2 syms_8; AGroup 16417 2 syms_9; AGroup 16419 2 syms_10;
     AGroup 16427 2 syms_11; SGroup 9247 2 syms_12; SGroup 7508 3 syms_13; SGroup 9797 4 syms_14;
     AGroup 16421 5 syms_15; SGroup 8844 14 syms_17]);
   (205410, 20, [AGroup 5 1 [sym_ppDirective]; AGroup 14983 1 [anon_sym_LBRACK];
     AGroup 14985 1 [anon_sym_LPAREN]; AGroup 14989 1 [anon_sym_POUND];
     AGroup 15001 1 [sym_kSpecialize]; AGroup 15005 1 [sym_kIf]; AGroup 15007 1 [sym_kInherited];
     AGroup 15009 1 [sym_kString]; AGroup 3 2 syms_5; AGroup 14987 2 syms_6;
     AGroup 14991 2 syms_7; AGroup 14993 2 syms_8; AGroup 14995 2 syms_9; AGroup 14997 2 syms_10;
     AGroup 15003 2 syms_11; SGroup 7132 2 syms_12; SGroup 6248 3 syms_13; SGroup 7076 4 syms_14;
     AGroup 14999 5 syms_15; SGroup 7054 14 syms_17]);
   (205501, 20, [AGroup 5 1 [sym_ppDirective]; AGroup 15987 1 [anon_sym_LBRACK];
     AGroup 15989 1 [anon_sym_LPAREN]; AGroup 15993 1 [anon_sym_POUND];
     AGroup 16007 1 [sym_kSpecialize]; AGroup 16011 1 [sym_kIf]; AGroup 16013 1 [sym_kInherited];
     AGroup 18254 1 [sym_kString]; AGroup 3 2 syms_5; AGroup 15991 2 syms_6;
     AGroup 15995 2 syms_7; AGroup 15997 2 syms_8; AGroup 15999 2 syms_9; AGroup 16001 2 syms_10;
     AGroup 16009 2 syms_11; SGroup 9525 2 syms_12; SGroup 7769 3 syms_13; SGroup 9935 4 syms_14;
     AGroup 16003 5 syms_15; SGroup 9072 14 syms_17]);
   (205592, 20, [AGroup 5 1 [sym_ppDirective]; AGroup 14983 1 [anon_sym_LBRACK];
     AGroup 14985 1 [anon_sym_LPAREN]; AGroup 14989 1 [anon_sym_POUND];
     AGroup 15001 1 [sym_kSpecialize]; AGroup 15005 1 [sym_kIf]; AGroup 15007 1 [sym_kInherited];
     AGroup 15009 1 [sym_kString]; AGroup 3 2 syms_5; AGroup 14987 2 syms_6;
     AGroup 14991 2 syms_7; AGroup 14993 2 syms_8; AGroup 14995 2 syms_9; AGroup 14997 2 syms_10;
     AGroup 15003 2 syms_11; SGroup 7132 2 syms_12; SGroup 6248 3 syms_13; SGroup 7103 4 syms_14;
     AGroup 14999 5 syms_15; SGroup 7054 14 syms_17]);
   (205683, 20, [AGroup 5 1 [sym_ppDirective]; AGroup 14983 1 [anon_sym_LBRACK];
     AGroup 14985 1 [anon_sym_LPAREN]; AGroup 14989 1 [anon_sym_POUND];
     AGroup 15001 1 [sym_kSpecialize]; AGroup 15005 1 [sym_kIf]; AGroup 15007 1 [sym_kInherited];
     AGroup 15009 1 [sym_kString]; AGroup 3 2 syms_5; AGroup 14987 2 syms_6;
     AGroup 14991 2 syms_7; AGroup 14993 2 syms_8; AGroup 14995 2 syms_9; AGroup 14997 2 syms_10;
     AGroup 15003 2 syms_11; SGroup 7132 2 syms_12; SGroup 6248 3 syms_13; SGroup 7105 4 syms_14;
     AGroup 14999 5 syms_15; SGroup 7054 14 syms_17]);
   (205774, 20, [AGroup 5 1 [sym_ppDirective]; AGroup 15761 1 [anon_sym_LBRACK];
     AGroup 15763 1 [anon_sym_LPAREN]; AGroup 15767 1 [anon_sym_POUND];
     AGroup 15781 1 [sym_kSpecialize]; AGroup 15787 1 [sym_kInherited]; AGroup 16229 1 [sym_kIf];
     AGroup 17864 1 [sym_kString]; AGroup 3 2 syms_5; AGroup 15765 2 syms_6;
     AGroup 15769 2 syms_7; AGroup 15771 2 syms_8; AGroup 15783 2 syms_11; AGroup 16221 2 syms_9;
     AGroup 16223 2 syms_10; SGroup 9180 2 syms_12; SGroup 7467 3 syms_13; SGroup 9945 4 syms_14;
     AGroup 16225 5 syms_15; SGroup 9076 14 syms_17]);
   (205865, 5, [AGroup 5 1 [sym_ppDirective]; AGroup 3 2 syms_5; AGroup 15496 4 syms_25;
     AGroup 15403 18 syms_36; AGroup 15494 25 syms_161]);
   (205926, 20, [AGroup 5 1 [sym_ppDirective]; AGroup 15647 1 [anon_sym_LBRACK];
     AGroup 15653 1 [anon_sym_POUND]; AGroup 15667 1 [sym_kSpecialize];
     AGroup 15673 1 [sym_kInherited]; AGroup 15675 1 [sym_kString];
     AGroup 15745 1 [anon_sym_LPAREN]; AGroup 15755 1 [sym_kIf]; AGroup 3 2 syms_5;
     AGroup 15651 2 syms_6; AGroup 15655 2 syms_7; AGroup 15657 2 syms_8; AGroup 15669 2 syms_11;
     AGroup 15747 2 syms_9; AGroup 15749 2 syms_10; SGroup 8129 2 syms_12; SGroup 7100 3 syms_13;
     SGroup 9950 4 syms_14; AGroup 15751 5 syms_15; SGroup 8464 14 syms_17]);
   (206017, 20, [AGroup 5 1 [sym_ppDirective]; AGroup 14983 1 [anon_sym_LBRACK];
     AGroup 14985 1 [anon_sym_LPAREN]; AGroup 14989 1 [anon_sym_POUND];
     AGroup 15001 1 [sym_kSpecialize]; AGroup 15005 1 [sym_kIf]; AGroup 15007 1 [sym_kInherited];
     AGroup 15009 1 [sym_kString]; AGroup 3 2 syms_5; AGroup 14987 2 syms_6;
     AGroup 14991 2 syms_7; AGroup 14993 2 syms_8; AGroup 14995 2 syms_9; AGroup 14997 2 syms_10;
     AGroup 15003 2 syms_11; SGroup 7132 2 syms_12; SGroup 6248 3 syms_13; SGroup 7058 4 syms_14;
     AGroup 14999 5 syms_15; SGroup 7054 14 syms_17]);
   (206108, 21, [AGroup 5 1 [sym_ppDirective]; AGroup 14983 1 [anon_sym_LBRACK];
     AGroup 14985 1 [anon_sym_LPAREN]; AGroup 14989 1 [anon_sym_POUND]; AGroup 14997 1 [sym_kAt];
     AGroup 15001 1 [sym_kSpecialize]; AGroup 15005 1 [sym_kIf]; AGroup 15007 1 [sym_kInherited];
     AGroup 15009 1 [sym_kString]; AGroup 18492 1 [sym_kNot]; AGroup 3 2 syms_5;
     AGroup 14987 2 syms_6; AGroup 14991 2 syms_7; AGroup 14993 2 syms_8; AGroup 14995 2 syms_9;
     AGroup 15003 2 syms_11; SGroup 7132 2 syms_12; SGroup 6248 3 syms_13; SGroup 7058 4 syms_14;
     AGroup 14999 5 syms_15; SGroup 7054 14 syms_17]);
   (206201, 20, [AGroup 5 1 [sym_ppDirective]; AGroup 16405 1 [anon_sym_LBRACK];
     AGroup 16407 1 [anon_sym_LPAREN]; AGroup 16411 1 [anon_sym_POUND];
     AGroup 16425 1 [sym_kSpecialize]; AGroup 16429 1 [sym_kIf]; AGroup 16431 1 [sym_kInherited];
     AGroup 18223 1 [sym_kString]; AGroup 3 2 syms_5; AGroup 16409 2 syms_6;
     AGroup 16413 2 syms_7; AGroup 16415 2 syms_8; AGroup 16417 2 syms_9; AGroup 16419 2 syms_10;
     AGroup 16427 2 syms_11; SGroup 9247 2 syms_12; SGroup 7508 3 syms_13; SGroup 9818 4 syms_14;
     AGroup 16421 5 syms_15; SGroup 8844 14 syms_17]);
   (206292, 20, [AGroup 5 1 [sym_ppDirective]; AGroup 14983 1 [anon_sym_LBRACK];
     AGroup 14985 1 [anon_sym_LPAREN]; AGroup 14989 1 [anon_sym_POUND];
     AGroup 15001 1 [sym_kSpecialize]; AGroup 15005 1 [sym_kIf]; AGroup 15007 1 [sym_kInherited];
     AGroup 15009 1 [sym_kString]; AGroup 3 2 syms_5; AGroup 14987 2 syms_6;
     AGroup 14991 2 syms_7; AGroup 14993 2 syms_8; AGroup 14995 2 syms_9; AGroup 14997 2 syms_10;
     AGroup 15003 2 syms_11; SGroup 7132 2 syms_12; SGroup 6248 3 syms_13; SGroup 7096 4 syms_14;
     AGroup 14999 5 syms_15; SGroup 7054 14 syms_17]);
   (206383, 20, [AGroup 5 1 [sym_ppDirective]; AGroup 14983 1 [anon_sym_LBRACK];
     AGroup 14985 1 [anon_sym_LPAREN]; AGroup 14989 1 [anon_sym_POUND];
     AGroup 15001 1 [sym_kSpecialize]; AGroup 15007 1 [sym_kInherited];
     AGroup 15009 1 [sym_kString]; AGroup 15755 1 [sym_kIf]; AGroup 3 2 syms_5;
     AGroup 14987 2 syms_6; AGroup 14991 2 syms_7; AGroup 14993 2 syms_8; AGroup 15003 2 syms_11;
     AGroup 15747 2 syms_9; AGroup 15749 2 syms_10; SGroup 7132 2 syms_12; SGroup 6248 3 syms_13;
     SGroup 10331 4 syms_14; AGroup 18494 5 syms_15; SGroup 7078 14 syms_17]);
   (206474, 20, [AGroup 5 1 [sym_ppDirective]; AGroup 15761 1 [anon_sym_LBRACK];
     AGroup 15763 1 [anon_sym_LPAREN]; AGroup 15767 1 [anon_sym_POUND];
     AGroup 15781 1 [sym_kSpecialize]; AGroup 15787 1 [sym_kInherited]; AGroup 16229 1 [sym_kIf];
     AGroup 17864 1 [sym_kString]; AGroup 3 2 syms_5; AGroup 15765 2 syms_6;
     AGroup 15769 2 syms_7; AGroup 15771 2 syms_8; AGroup 15783 2 syms_11; AGroup 16221 2 syms_9;
     AGroup 16223 2 syms_10; SGroup 9180 2 syms_12; SGroup 7467 3 syms_13; SGroup 9964 4 syms_14;
     AGroup 16225 5 syms_15; SGroup 9076 14 syms_17]);
   (206565, 20, [AGroup 5 1 [sym_ppDirective]; AGroup 15761 1 [anon_sym_LBRACK];
     AGroup 15763 1 [anon_sym_LPAREN]; AGroup 15767 1 [anon_sym_POUND];
     AGroup 15781 1 [sym_kSpecialize]; AGroup 15787 1 [sym_kInherited]; AGroup 16229 1 [sym_kIf];
     AGroup 17864 1 [sym_kString]; AGroup 3 2 syms_5; AGroup 15765 2 syms_6;
     AGroup 15769 2 syms_7; AGroup 15771 2 syms_8; AGroup 15783 2 syms_11; AGroup 16221 2 syms_9;
     AGroup 16223 2 syms_10; SGroup 9180 2 syms_12; SGroup 7467 3 syms_13; SGroup 9966 4 syms_14;
     AGroup 16225 5 syms_15; SGroup 9076 14 syms_17]);
   (206656, 20, [AGroup 5 1 [sym_ppDirective]; AGroup 16715 1 [anon_sym_LBRACK];
     AGroup 16717 1 [anon_sym_LPAREN]; AGroup 16721 1 [anon_sym_POUND];
     AGroup 16735 1 [sym_kSpecialize]; AGroup 16739 1 [sym_kIf]; AGroup 16741 1 [sym_kInherited];
     AGroup 18201 1 [sym_kString]; AGroup 3 2 syms_5; AGroup 16719 2 syms_6;
     AGroup 16723 2 syms_7; AGroup 16725 2 syms_8; AGroup 16727 2 syms_9; AGroup 16729 2 syms_10;
     AGroup 16737 2 syms_11; SGroup 7901 2 syms_12; SGroup 7014 3 syms_13; SGroup 8453 4 syms_14;
     AGroup 16731 5 syms_15; SGroup 7757 14 syms_17]);
   (206747, 20, [AGroup 5 1 [sym_ppDirective]; AGroup 15831 1 [anon_sym_LBRACK];
     AGroup 15833 1 [anon_sym_LPAREN]; AGroup 15837 1 [anon_sym_POUND];
     AGroup 15851 1 [sym_kSpecialize]; AGroup 15855 1 [sym_kIf]; AGroup 15857 1 [sym_kInherited];
     AGroup 17312 1 [sym_kString]; AGroup 3 2 syms_5; AGroup 15835 2 syms_6;
     AGroup 15839 2 syms_7; AGroup 15841 2 syms_8; AGroup 15843 2 syms_9; AGroup 15845 2 syms_10;
     AGroup 15853 2 syms_11; SGroup 9267 2 syms_12; SGroup 7556 3 syms_13; SGroup 9921 4 syms_14;
     AGroup 15847 5 syms_15; SGroup 8649 14 syms_17]);
   (206838, 20, [AGroup 5 1 [sym_ppDirective]; AGroup 16405 1 [anon_sym_LBRACK];
     AGroup 16407 1 [anon_sym_LPAREN]; AGroup 16411 1 [anon_sym_POUND];
     AGroup 16425 1 [sym_kSpecialize]; AGroup 16429 1 [sym_kIf]; AGroup 16431 1 [sym_kInherited];
     AGroup 18223 1 [sym_kString]; AGroup 3 2 syms_5; AGroup 16409 2 syms_6;
     AGroup 16413 2 syms_7; AGroup 16415 2 syms_8; AGroup 16417 2 syms_9; AGroup 16419 2 syms_10;
     AGroup 16427 2 syms_11; SGroup 9247 2 syms_12; SGroup 7508 3 syms_13; SGroup 9622 4 syms_14;
     AGroup 16421 5 syms_15; SGroup 8844 14 syms_17]);
   (206929, 20, [AGroup 5 1 [sym_ppDirective]; AGroup 16191 1 [anon_sym_LBRACK];
     AGroup 16193 1 [anon_sym_LPAREN]; AGroup 16197 1 [anon_sym_POUND];
     AGroup 16211 1 [sym_kSpecialize]; AGroup 16215 1 [sym_kIf]; AGroup 16217 1 [sym_kInherited];
     AGroup 16882 1 [sym_kString]; AGroup 3 2 syms_5; AGroup 16195 2 syms_6;
     AGroup 16199 2 syms_7; AGroup 16201 2 syms_8; AGroup 16203 2 syms_9; AGroup 16205 2 syms_10;
     AGroup 16213 2 syms_11; SGroup 7995 2 syms_12; SGroup 7098 3 syms_13; SGroup 7908 4 syms_14;
     AGroup 16207 5 syms_15; SGroup 7895 14 syms_17]);
   (207020, 20, [AGroup 5 1 [sym_ppDirective]; AGroup 15987 1 [anon_sym_LBRACK];
     AGroup 15989 1 [anon_sym_LPAREN]; AGroup 15993 1 [anon_sym_POUND];
     AGroup 16007 1 [sym_kSpecialize]; AGroup 16011 1 [sym_kIf]; AGroup 16013 1 [sym_kInherited];
     AGroup 18254 1 [sym_kString]; AGroup 3 2 syms_5; AGroup 15991 2 syms_6;
     AGroup 15995 2 syms_7; AGroup 15997 2 syms_8; AGroup 15999 2 syms_9; AGroup 16001 2 syms_10;
     AGroup 16009 2 syms_11; SGroup 9525 2 syms_12; SGroup 7769 3 syms_13; SGroup 9990 4 syms_14;
     AGroup 16003 5 syms_15; SGroup 9072 14 syms_17]);
   (207111, 20, [AGroup 5 1 [sym_ppDirective]; AGroup 16247 1 [anon_sym_LBRACK];
     AGroup 16249 1 [anon_sym_LPAREN]; AGroup 16253 1 [anon_sym_POUND];
     AGroup 16267 1 [sym_kSpecialize]; AGroup 16271 1 [sym_kIf]; AGroup 16273 1 [sym_kInherited];
     AGroup 16745 1 [sym_kString]; AGroup 3 2 syms_5; AGroup 16251 2 syms_6;
     AGroup 16255 2 syms_7; AGroup 16257 2 syms_8; AGroup 16259 2 syms_9; AGroup 16261 2 syms_10;
     AGroup 16269 2 syms_11; SGroup 8258 2 syms_12; SGroup 7207 3 syms_13; SGroup 8066 4 syms_14;
     AGroup 16263 5 syms_15; SGroup 8006 14 syms_17]);
   (207202, 20, [AGroup 5 1 [sym_ppDirective]; AGroup 16247 1 [anon_sym_LBRACK];
     AGroup 16249 1 [anon_sym_LPAREN]; AGroup 16253 1 [anon_sym_POUND];
     AGroup 16267 1 [sym_kSpecialize]; AGroup 16271 1 [sym_kIf]; AGroup 16273 1 [sym_kInherited];
     AGroup 16745 1 [sym_kString]; AGroup 3 2 syms_5; AGroup 16251 2 syms_6;
     AGroup 16255 2 syms_7; AGroup 16257 2 syms_8; AGroup 16259 2 syms_9; AGroup 16261 2 syms_10;
     AGroup 16269 2 syms_11; SGroup 8258 2 syms_12; SGroup 7207 3 syms_13; SGroup 8067 4 syms_14;
     AGroup 16263 5 syms_15; SGroup 8006 14 syms_17]);
   (207293, 20, [AGroup 5 1 [sym_ppDirective]; AGroup 15761 1 [anon_sym_LBRACK];
     AGroup 15763 1 [anon_sym_LPAREN]; AGroup 15767 1 [anon_sym_POUND];
     AGroup 15781 1 [sym_kSpecialize]; AGroup 15787 1 [sym_kInherited]; AGroup 16229 1 [sym_kIf];
     AGroup 17864 1 [sym_kString]; AGroup 3 2 syms_5; AGroup 15765 2 syms_6;
     AGroup 15769 2 syms_7; AGroup 15771 2 syms_8; AGroup 15783 2 syms_11; AGroup 16221 2 syms_9;
     AGroup 16223 2 syms_10; SGroup 9180 2 syms_12; SGroup 7467 3 syms_13; SGroup 9994 4 syms_14;
     AGroup 16225 5 syms_15; SGroup 9076 14 syms_17]);
   (207384, 20, [AGroup 5 1 [sym_ppDirective]; AGroup 16021 1 [anon_sym_LBRACK];
     AGroup 16023 1 [anon_sym_LPAREN]; AGroup 16027 1 [anon_sym_POUND];
     AGroup 16041 1 [sym_kSpecialize]; AGroup 16045 1 [sym_kIf]; AGroup 16047 1 [sym_kInherited];
     AGroup 17344 1 [sym_kString]; AGroup 3 2 syms_5; AGroup 16025 2 syms_6;
     AGroup 16029 2 syms_7; AGroup 16031 2 syms_8; AGroup 16033 2 syms_9; AGroup 16035 2 syms_10;
     AGroup 16043 2 syms_11; SGroup 9151 2 syms_12; SGroup 7393 3 syms_13; SGroup 8780 4 syms_14;
     AGroup 16037 5 syms_15; SGroup 8705 14 syms_17]);
   (207475, 20, [AGroup 5 1 [sym_ppDirective]; AGroup 15647 1 [anon_sym_LBRACK];
     AGroup 15653 1 [anon_sym_POUND]; AGroup 15667 1 [sym_kSpecialize];
     AGroup 15673 1 [sym_kInherited]; AGroup 15675 1 [sym_kString];
     AGroup 15745 1 [anon_sym_LPAREN]; AGroup 15755 1 [sym_kIf]; AGroup 3 2 syms_5;
     AGroup 15651 2 syms_6; AGroup 15655 2 syms_7; AGroup 15657 2 syms_8; AGroup 15669 2 syms_11;
     AGroup 15747 2 syms_9; AGroup 15749 2 syms_10; SGroup 8129 2 syms_12; SGroup 7100 3 syms_13;
     SGroup 10002 4 syms_14; AGroup 15751 5 syms_15; SGroup 8464 14 syms_17]);
   (207566, 31, [AGroup 5 1 [sym_ppDirective]; AGroup 13347 1 [anon_sym_LBRACK];
     AGroup 13351 1 [aux_sym_ppUsesBlock_token1]; AGroup 13365 1 [sym_identifier];
     AGroup 13367 1 [sym_kGeneric]; AGroup 13369 1 [sym_kOperator]; AGroup 13373 1 [sym_kStrict];
     AGroup 13377 1 [sym_kCase]; AGroup 13379 1 [sym_kClass]; AGroup 13391 1 [sym_kProperty];
     AGroup 13395 1 [sym_kType]; AGroup 18496 1 [anon_sym_SEMI]; AGroup 18498 1 [sym_kEnd];
     SGroup 2 1 [sym__ppIf]; SGroup 6354 1 [sym__visibility]; SGroup 9779 1 [sym_ppBlock];
     SGroup 9835 1 [sym__declOperator]; SGroup 10247 1 [sym__declProc];
     SGroup 10617 1 [sym_rttiAttributes]; SGroup 10730 1 [aux_sym_rttiAttributes_repeat2];
     SGroup 13987 1 [aux_sym_genericArg_repeat1]; SGroup 14434 1 [sym_declVariant];
     SGroup 14651 1 [sym__declClass]; AGroup 3 2 syms_5; AGroup 13381 2 syms_65;
     AGroup 13393 2 syms_66; SGroup 5685 2 syms_68; SGroup 10490 3 syms_69;
     AGroup 13383 4 syms_3; AGroup 13371 6 syms_70; SGroup 6150 6 syms_71]);
   (207679, 20, [AGroup 5 1 [sym_ppDirective]; AGroup 16405 1 [anon_sym_LBRACK];
     AGroup 16407 1 [anon_sym_LPAREN]; AGroup 16411 1 [anon_sym_POUND];
     AGroup 16425 1 [sym_kSpecialize]; AGroup 16429 1 [sym_kIf]; AGroup 16431 1 [sym_kInherited];
     AGroup 18223 1 [sym_kString]; AGroup 3 2 syms_5; AGroup 16409 2 syms_6;
     AGroup 16413 2 syms_7; AGroup 16415 2 syms_8; AGroup 16417 2 syms_9; AGroup 16419 2 syms_10;
     AGroup 16427 2 syms_11; SGroup 9247 2 syms_12; SGroup 7508 3 syms_13; SGroup 9662 4 syms_14;
     AGroup 16421 5 syms_15; SGroup 8844 14 syms_17]);
   (207770, 20, [AGroup 5 1 [sym_ppDirective]; AGroup 14983 1 [anon_sym_LBRACK];
     AGroup 14985 1 [anon_sym_LPAREN]; AGroup 14989 1 [anon_sym_POUND];
     AGroup 15001 1 [sym_kSpecialize]; AGroup 15005 1 [sym_kIf]; AGroup 15007 1 [sym_kInherited];
     AGroup 15009 1 [sym_kString]; AGroup 3 2 syms_5; AGroup 14987 2 syms_6;
     AGroup 14991 2 syms_7; AGroup 14993 2 syms_8; AGroup 14995 2 syms_9; AGroup 14997 2 syms_10;
     AGroup 15003 2 syms_11; SGroup 7132 2 syms_12; SGroup 6248 3 syms_13; SGroup 7093 4 syms_14;
     AGroup 14999 5 syms_15; SGroup 7054 14 syms_17]);
   (207861, 20, [AGroup 5 1 [sym_ppDirective]; AGroup 15761 1 [anon_sym_LBRACK];
     AGroup 15763 1 [anon_sym_LPAREN]; AGroup 15767 1 [anon_sym_POUND];
     AGroup 15781 1 [sym_kSpecialize]; AGroup 15787 1 [sym_kInherited]; AGroup 16229 1 [sym_kIf];
     AGroup 17864 1 [sym_kString]; AGroup 3 2 syms_5; AGroup 15765 2 syms_6;
     AGroup 15769 2 syms_7; AGroup 15771 2 syms_8; AGroup 15783 2 syms_11; AGroup 16221 2 syms_9;
     AGroup 16223 2 syms_10; SGroup 9180 2 syms_12; SGroup 7467 3 syms_13;
     SGroup 10026 4 syms_14; AGroup 16225 5 syms_15; SGroup 9076 14 syms_17]);
   (207952, 20, [AGroup 5 1 [sym_ppDirective]; AGroup 15761 1 [anon_sym_LBRACK];
     AGroup 15763 1 [anon_sym_LPAREN]; AGroup 15767 1 [anon_sym_POUND];
     AGroup 15781 1 [sym_kSpecialize]; AGroup 15787 1 [sym_kInherited]; AGroup 16229 1 [sym_kIf];
     AGroup 17864 1 [sym_kString]; AGroup 3 2 syms_5; AGroup 15765 2 syms_6;
     AGroup 15769 2 syms_7; AGroup 15771 2 syms_8; AGroup 15783 2 syms_11; AGroup 16221 2 syms_9;
     AGroup 16223 2 syms_10; SGroup 9180 2 syms_12; SGroup 7467 3 syms_13;
     SGroup 10028 4 syms_14; AGroup 16225 5 syms_15; SGroup 9076 14 syms_17]);
   (208043, 20, [AGroup 5 1 [sym_ppDirective]; AGroup 16715 1 [anon_sym_LBRACK];
     AGroup 16717 1 [anon_sym_LPAREN]; AGroup 16721 1 [anon_sym_POUND];
     AGroup 16735 1 [sym_kSpecialize]; AGroup 16739 1 [sym_kIf]; AGroup 16741 1 [sym_kInherited];
     AGroup 18201 1 [sym_kString]; AGroup 3 2 syms_5; AGroup 16719 2 syms_6;
     AGroup 16723 2 syms_7; AGroup 16725 2 syms_8; AGroup 16727 2 syms_9; AGroup 16729 2 syms_10;
     AGroup 16737 2 syms_11; SGroup 7901 2 syms_12; SGroup 7014 3 syms_13; SGroup 8475 4 syms_14;
     AGroup 16731 5 syms_15; SGroup 7757 14 syms_17]);
   (208134, 20, [AGroup 5 1 [sym_ppDirective]; AGroup 15831 1 [anon_sym_LBRACK];
     AGroup 15833 1 [anon_sym_LPAREN]; AGroup 15837 1 [anon_sym_POUND];
     AGroup 15851 1 [sym_kSpecialize]; AGroup 15855 1 [sym_kIf]; AGroup 15857 1 [sym_kInherited];
     AGroup 17312 1 [sym_kString]; AGroup 3 2 syms_5; AGroup 15835 2 syms_6;
     AGroup 15839 2 syms_7; AGroup 15841 2 syms_8; AGroup 15843 2 syms_9; AGroup 15845 2 syms_10;
     AGroup 15853 2 syms_11; SGroup 9267 2 syms_12; SGroup 7556 3 syms_13; SGroup 9971 4 syms_14;
     AGroup 15847 5 syms_15; SGroup 8649 14 syms_17]);
   (208225, 20, [AGroup 5 1 [sym_ppDirective]; AGroup 16405 1 [anon_sym_LBRACK];
     AGroup 16407 1 [anon_sym_LPAREN]; AGroup 16411 1 [anon_sym_POUND];
     AGroup 16425 1 [sym_kSpecialize]; AGroup 16429 1 [sym_kIf]; AGroup 16431 1 [sym_kInherited];
     AGroup 18223 1 [sym_kString]; AGroup 3 2 syms_5; AGroup 16409 2 syms_6;
     AGroup 16413 2 syms_7; AGroup 16415 2 syms_8; AGroup 16417 2 syms_9; AGroup 16419 2 syms_10;
     AGroup 16427 2 syms_11; SGroup 9247 2 syms_12; SGroup 7508 3 syms_13; SGroup 9666 4 syms_14;
     AGroup 16421 5 syms_15; SGroup 8844 14 syms_17]);
   (208316, 20, [AGroup 5 1 [sym_ppDirective]; AGroup 16247 1 [anon_sym_LBRACK];
     AGroup 16249 1 [anon_sym_LPAREN]; AGroup 16253 1 [anon_sym_POUND];
     AGroup 16267 1 [sym_kSpecialize]; AGroup 16271 1 [sym_kIf]; AGroup 16273 1 [sym_kInherited];
     AGroup 16745 1 [sym_kString]; AGroup 3 2 syms_5; AGroup 16251 2 syms_6;
     AGroup 16255 2 syms_7; AGroup 16257 2 syms_8; AGroup 16259 2 syms_9; AGroup 16261 2 syms_10;
     AGroup 16269 2 syms_11; SGroup 8258 2 syms_12; SGroup 7207 3 syms_13; SGroup 8068 4 syms_14;
     AGroup 16263 5 syms_15; SGroup 8006 14 syms_17]);
   (208407, 20, [AGroup 5 1 [sym_ppDirective]; AGroup 15987 1 [anon_sym_LBRACK];
     AGroup 15989 1 [anon_sym_LPAREN]; AGroup 15993 1 [anon_sym_POUND];
     AGroup 16007 1 [sym_kSpecialize]; AGroup 16011 1 [sym_kIf]; AGroup 16013 1 [sym_kInherited];
     AGroup 18254 1 [sym_kString]; AGroup 3 2 syms_5; AGroup 15991 2 syms_6;
     AGroup 15995 2 syms_7; AGroup 15997 2 syms_8; AGroup 15999 2 syms_9; AGroup 16001 2 syms_10;
     AGroup 16009 2 syms_11; SGroup 9525 2 syms_12; SGroup 7769 3 syms_13;
     SGroup 10053 4 syms_14; AGroup 16003 5 syms_15; SGroup 9072 14 syms_17]);
   (208498, 21, [AGroup 5 1 [sym_ppDirective]; AGroup 16247 1 [anon_sym_LBRACK];
     AGroup 16249 1 [anon_sym_LPAREN]; AGroup 16253 1 [anon_sym_POUND]; AGroup 16261 1 [sym_kAt];
     AGroup 16267 1 [sym_kSpecialize]; AGroup 16271 1 [sym_kIf]; AGroup 16273 1 [sym_kInherited];
     AGroup 16745 1 [sym_kString]; AGroup 18500 1 [sym_kNot]; AGroup 3 2 syms_5;
     AGroup 16251 2 syms_6; AGroup 16255 2 syms_7; AGroup 16257 2 syms_8; AGroup 16259 2 syms_9;
     AGroup 16269 2 syms_11; SGroup 8258 2 syms_12; SGroup 7207 3 syms_13; SGroup 8068 4 syms_14;
     AGroup 16263 5 syms_15; SGroup 8006 14 syms_17]);
   (208591, 20, [AGroup 5 1 [sym_ppDirective]; AGroup 16247 1 [anon_sym_LBRACK];
     AGroup 16249 1 [anon_sym_LPAREN]; AGroup 16253 1 [anon_sym_POUND];
     AGroup 16267 1 [sym_kSpecialize]; AGroup 16271 1 [sym_kIf]; AGroup 16273 1 [sym_kInherited];
     AGroup 16745 1 [sym_kString]; AGroup 3 2 syms_5; AGroup 16251 2 syms_6;
     AGroup 16255 2 syms_7; AGroup 16257 2 syms_8; AGroup 16259 2 syms_9; AGroup 16261 2 syms_10;
     AGroup 16269 2 syms_11; SGroup 8258 2 syms_12; SGroup 7207 3 syms_13; SGroup 8069 4 syms_14;
     AGroup 16263 5 syms_15; SGroup 8006 14 syms_17]);
   (208682, 20, [AGroup 5 1 [sym_ppDirective]; AGroup 15761 1 [anon_sym_LBRACK];
     AGroup 15763 1 [anon_sym_LPAREN]; AGroup 15767 1 [anon_sym_POUND];
     AGroup 15781 1 [sym_kSpecialize]; AGroup 15787 1 [sym_kInherited]; AGroup 16229 1 [sym_kIf];
     AGroup 17864 1 [sym_kString]; AGroup 3 2 syms_5; AGroup 15765 2 syms_6;
     AGroup 15769 2 syms_7; AGroup 15771 2 syms_8; AGroup 15783 2 syms_11; AGroup 16221 2 syms_9;
     AGroup 16223 2 syms_10; SGroup 9180 2 syms_12; SGroup 7467 3 syms_13;
     SGroup 10056 4 syms_14; AGroup 16225 5 syms_15; SGroup 9076 14 syms_17]);
   (208773, 20, [AGroup 5 1 [sym_ppDirective]; AGroup 15647 1 [anon_sym_LBRACK];
     AGroup 15653 1 [anon_sym_POUND]; AGroup 15667 1 [sym_kSpecialize];
     AGroup 15673 1 [sym_kInherited]; AGroup 15675 1 [sym_kString];
     AGroup 15745 1 [anon_sym_LPAREN]; AGroup 15755 1 [sym_kIf]; AGroup 3 2 syms_5;
     AGroup 15651 2 syms_6; AGroup 15655 2 syms_7; AGroup 15657 2 syms_8; AGroup 15669 2 syms_11;
     AGroup 15747 2 syms_9; AGroup 15749 2 syms_10; SGroup 8129 2 syms_12; SGroup 7100 3 syms_13;
     SGroup 10062 4 syms_14; AGroup 15751 5 syms_15; SGroup 8464 14 syms_17]);
   (208864, 20, [AGroup 5 1 [sym_ppDirective]; AGroup 16191 1 [anon_sym_LBRACK];
     AGroup 16193 1 [anon_sym_LPAREN]; AGroup 16197 1 [anon_sym_POUND];
     AGroup 16211 1 [sym_kSpecialize]; AGroup 16215 1 [sym_kIf]; AGroup 16217 1 [sym_kInherited];
     AGroup 16882 1 [sym_kString]; AGroup 3 2 syms_5; AGroup 16195 2 syms_6;
     AGroup 16199 2 syms_7; AGroup 16201 2 syms_8; AGroup 16203 2 syms_9; AGroup 16205 2 syms_10;
     AGroup 16213 2 syms_11; SGroup 7995 2 syms_12; SGroup 7098 3 syms_13; SGroup 7795 4 syms_14;
     AGroup 16207 5 syms_15; SGroup 7895 14 syms_17]);
   (208955, 20, [AGroup 5 1 [sym_ppDirective]; AGroup 16405 1 [anon_sym_LBRACK];
     AGroup 16407 1 [anon_sym_LPAREN]; AGroup 16411 1 [anon_sym_POUND];
     AGroup 16425 1 [sym_kSpecialize]; AGroup 16429 1 [sym_kIf]; AGroup 16431 1 [sym_kInherited];
     AGroup 18223 1 [sym_kString]; AGroup 3 2 syms_5; AGroup 16409 2 syms_6;
     AGroup 16413 2 syms_7; AGroup 16415 2 syms_8; AGroup 16417 2 syms_9; AGroup 16419 2 syms_10;
     AGroup 16427 2 syms_11; SGroup 9247 2 syms_12; SGroup 7508 3 syms_13; SGroup 9698 4 syms_14;
     AGroup 16421 5 syms_15; SGroup 8844 14 syms_17]);
   (209046, 20, [AGroup 5 1 [sym_ppDirective]; AGroup 15755 1 [sym_kIf]; AGroup 16247 1 [anon_sym_LBRACK];
     AGroup 16249 1 [anon_sym_LPAREN]; AGroup 16253 1 [anon_sym_POUND];
     AGroup 16267 1 [sym_kSpecialize]; AGroup 16273 1 [sym_kInherited];
     AGroup 16745 1 [sym_kString]; AGroup 3 2 syms_5; AGroup 15747 2 syms_9;
     AGroup 15749 2 syms_10; AGroup 16251 2 syms_6; AGroup 16255 2 syms_7; AGroup 16257 2 syms_8;
     AGroup 16269 2 syms_11; SGroup 8258 2 syms_12; SGroup 7207 3 syms_13;
     SGroup 10269 4 syms_14; AGroup 18502 5 syms_15; SGroup 8071 14 syms_17]);
   (209137, 20, [AGroup 5 1 [sym_ppDirective]; AGroup 15761 1 [anon_sym_LBRACK];
     AGroup 15763 1 [anon_sym_LPAREN]; AGroup 15767 1 [anon_sym_POUND];
     AGroup 15781 1 [sym_kSpecialize]; AGroup 15787 1 [sym_kInherited]; AGroup 16229 1 [sym_kIf];
     AGroup 17864 1 [sym_kString]; AGroup 3 2 syms_5; AGroup 15765 2 syms_6;
     AGroup 15769 2 syms_7; AGroup 15771 2 syms_8; AGroup 15783 2 syms_11; AGroup 16221 2 syms_9;
     AGroup 16223 2 syms_10; SGroup 9180 2 syms_12; SGroup 7467 3 syms_13;
     SGroup 10079 4 syms_14; AGroup 16225 5 syms_15; SGroup 9076 14 syms_17]);
   (209228, 20, [AGroup 5 1 [sym_ppDirective]; AGroup 15761 1 [anon_sym_LBRACK];
     AGroup 15763 1 [anon_sym_LPAREN]; AGroup 15767 1 [anon_sym_POUND];
     AGroup 15781 1 [sym_kSpecialize]; AGroup 15787 1 [sym_kInherited]; AGroup 16229 1 [sym_kIf];
     AGroup 17864 1 [sym_kString]; AGroup 3 2 syms_5; AGroup 15765 2 syms_6;
     AGroup 15769 2 syms_7; AGroup 15771 2 syms_8; AGroup 15783 2 syms_11; AGroup 16221 2 syms_9;
     AGroup 16223 2 syms_10; SGroup 9180 2 syms_12; SGroup 7467 3 syms_13;
     SGroup 10080 4 syms_14; AGroup 16225 5 syms_15; SGroup 9076 14 syms_17]);
   (209319, 20, [AGroup 5 1 [sym_ppDirective]; AGroup 16715 1 [anon_sym_LBRACK];
     AGroup 16717 1 [anon_sym_LPAREN]; AGroup 16721 1 [anon_sym_POUND];
     AGroup 16735 1 [sym_kSpecialize]; AGroup 16739 1 [sym_kIf]; AGroup 16741 1 [sym_kInherited];
     AGroup 18201 1 [sym_kString]; AGroup 3 2 syms_5; AGroup 16719 2 syms_6;
     AGroup 16723 2 syms_7; AGroup 16725 2 syms_8; AGroup 16727 2 syms_9; AGroup 16729 2 syms_10;
     AGroup 16737 2 syms_11; SGroup 7901 2 syms_12; SGroup 7014 3 syms_13; SGroup 8488 4 syms_14;
     AGroup 16731 5 syms_15; SGroup 7757 14 syms_17]);
   (209410, 20, [AGroup 5 1 [sym_ppDirective]; AGroup 15831 1 [anon_sym_LBRACK];
     AGroup 15833 1 [anon_sym_LPAREN]; AGroup 15837 1 [anon_sym_POUND];
     AGroup 15851 1 [sym_kSpecialize]; AGroup 15855 1 [sym_kIf]; AGroup 15857 1 [sym_kInherited];
     AGroup 17312 1 [sym_kString]; AGroup 3 2 syms_5; AGroup 15835 2 syms_6;
     AGroup 15839 2 syms_7; AGroup 15841 2 syms_8; AGroup 15843 2 syms_9; AGroup 15845 2 syms_10;
     AGroup 15853 2 syms_11; SGroup 9267 2 syms_12; SGroup 7556 3 syms_13;
     SGroup 10032 4 syms_14; AGroup 15847 5 syms_15; SGroup 8649 14 syms_17]);
   (209501, 20, [AGroup 5 1 [sym_ppDirective]; AGroup 16405 1 [anon_sym_LBRACK];
     AGroup 16407 1 [anon_sym_LPAREN]; AGroup 16411 1 [anon_sym_POUND];
     AGroup 16425 1 [sym_kSpecialize]; AGroup 16429 1 [sym_kIf]; AGroup 16431 1 [sym_kInherited];
     AGroup 18223 1 [sym_kString]; AGroup 3 2 syms_5; AGroup 16409 2 syms_6;
     AGroup 16413 2 syms_7; AGroup 16415 2 syms_8; AGroup 16417 2 syms_9; AGroup 16419 2 syms_10;
     AGroup 16427 2 syms_11; SGroup 9247 2 syms_12; SGroup 7508 3 syms_13; SGroup 9701 4 syms_14;
     AGroup 16421 5 syms_15; SGroup 8844 14 syms_17]);
   (209592, 20, [AGroup 5 1 [sym_ppDirective]; AGroup 15987 1 [anon_sym_LBRACK];
     AGroup 15989 1 [anon_sym_LPAREN]; AGroup 15993 1 [anon_sym_POUND];
     AGroup 16007 1 [sym_kSpecialize]; AGroup 16011 1 [sym_kIf]; AGroup 16013 1 [sym_kInherited];
     AGroup 18254 1 [sym_kString]; AGroup 3 2 syms_5; AGroup 15991 2 syms_6;
     AGroup 15995 2 syms_7; AGroup 15997 2 syms_8; AGroup 15999 2 syms_9; AGroup 16001 2 syms_10;
     AGroup 16009 2 syms_11; SGroup 9525 2 syms_12; SGroup 7769 3 syms_13;
     SGroup 10104 4 syms_14; AGroup 16003 5 syms_15; SGroup 9072 14 syms_17]);
   (209683, 31, [AGroup 5 1 [sym_ppDirective]; AGroup 13347 1 [anon_sym_LBRACK];
     AGroup 13351 1 [aux_sym_ppUsesBlock_token1]; AGroup 13365 1 [sym_identifier];
     AGroup 13367 1 [sym_kGeneric]; AGroup 13369 1 [sym_kOperator]; AGroup 13373 1 [sym_kStrict];
     AGroup 13377 1 [sym_kCase]; AGroup 13379 1 [sym_kClass]; AGroup 13391 1 [sym_kProperty];
     AGroup 13395 1 [sym_kType]; AGroup 18504 1 [anon_sym_SEMI]; AGroup 18506 1 [sym_kEnd];
     SGroup 2 1 [sym__ppIf]; SGroup 6354 1 [sym__visibility]; SGroup 9779 1 [sym_ppBlock];
     SGroup 9835 1 [sym__declOperator]; SGroup 10247 1 [sym__declProc];
     SGroup 10617 1 [sym_rttiAttributes]; SGroup 10730 1 [aux_sym_rttiAttributes_repeat2];
     SGroup 13987 1 [aux_sym_genericArg_repeat1]; SGroup 14434 1 [sym_declVariant];
     SGroup 14827 1 [sym__declClass]; AGroup 3 2 syms_5; AGroup 13381 2 syms_65;
     AGroup 13393 2 syms_66; SGroup 5685 2 syms_68; SGroup 10490 3 syms_69;
     AGroup 13383 4 syms_3; AGroup 13371 6 syms_70; SGroup 6150 6 syms_71]);
   (209796, 20, [AGroup 5 1 [sym_ppDirective]; AGroup 15761 1 [anon_sym_LBRACK];
     AGroup 15763 1 [anon_sym_LPAREN]; AGroup 15767 1 [anon_sym_POUND];
     AGroup 15781 1 [sym_kSpecialize]; AGroup 15787 1 [sym_kInherited]; AGroup 16229 1 [sym_kIf];
     AGroup 17864 1 [sym_kString]; AGroup 3 2 syms_5; AGroup 15765 2 syms_6;
     AGroup 15769 2 syms_7; AGroup 15771 2 syms_8; AGroup 15783 2 syms_11; AGroup 16221 2 syms_9;
     AGroup 16223 2 syms_10; SGroup 9180 2 syms_12; SGroup 7467 3 syms_13;
     SGroup 10109 4 syms_14; AGroup 16225 5 syms_15; SGroup 9076 14 syms_17]);
   (209887, 20, [AGroup 5 1 [sym_ppDirective]; AGroup 16191 1 [anon_sym_LBRACK];
     AGroup 16193 1 [anon_sym_LPAREN]; AGroup 16197 1 [anon_sym_POUND];
     AGroup 16211 1 [sym_kSpecialize]; AGroup 16215 1 [sym_kIf]; AGroup 16217 1 [sym_kInherited];
     AGroup 16882 1 [sym_kString]; AGroup 3 2 syms_5; AGroup 16195 2 syms_6;
     AGroup 16199 2 syms_7; AGroup 16201 2 syms_8; AGroup 16203 2 syms_9; AGroup 16205 2 syms_10;
     AGroup 16213 2 syms_11; SGroup 7995 2 syms_12; SGroup 7098 3 syms_13; SGroup 7796 4 syms_14;
     AGroup 16207 5 syms_15; SGroup 7895 14 syms_17]);
   (209978, 20, [AGroup 5 1 [sym_ppDirective]; AGroup 15647 1 [anon_sym_LBRACK];
     AGroup 15653 1 [anon_sym_POUND]; AGroup 15667 1 [sym_kSpecialize];
     AGroup 15673 1 [sym_kInherited]; AGroup 15675 1 [sym_kString];
     AGroup 15745 1 [anon_sym_LPAREN]; AGroup 15755 1 [sym_kIf]; AGroup 3 2 syms_5;
     AGroup 15651 2 syms_6; AGroup 15655 2 syms_7; AGroup 15657 2 syms_8; AGroup 15669 2 syms_11;
     AGroup 15747 2 syms_9; AGroup 15749 2 syms_10; SGroup 8129 2 syms_12; SGroup 7100 3 syms_13;
     SGroup 10114 4 syms_14; AGroup 15751 5 syms_15; SGroup 8464 14 syms_17]);
   (210069, 20, [AGroup 5 1 [sym_ppDirective]; AGroup 16191 1 [anon_sym_LBRACK];
     AGroup 16193 1 [anon_sym_LPAREN]; AGroup 16197 1 [anon_sym_POUND];
     AGroup 16211 1 [sym_kSpecialize]; AGroup 16215 1 [sym_kIf]; AGroup 16217 1 [sym_kInherited];
     AGroup 16882 1 [sym_kString]; AGroup 3 2 syms_5; AGroup 16195 2 syms_6;
     AGroup 16199 2 syms_7; AGroup 16201 2 syms_8; AGroup 16203 2 syms_9; AGroup 16205 2 syms_10;
     AGroup 16213 2 syms_11; SGroup 7995 2 syms_12; SGroup 7098 3 syms_13; SGroup 7798 4 syms_14;
     AGroup 16207 5 syms_15; SGroup 7895 14 syms_17]);
   (210160, 20, [AGroup 5 1 [sym_ppDirective]; AGroup 14983 1 [anon_sym_LBRACK];
     AGroup 14985 1 [anon_sym_LPAREN]; AGroup 14989 1 [anon_sym_POUND];
     AGroup 15001 1 [sym_kSpecialize]; AGroup 15005 1 [sym_kIf]; AGroup 15007 1 [sym_kInherited];
     AGroup 15009 1 [sym_kString]; AGroup 3 2 syms_5; AGroup 14987 2 syms_6;
     AGroup 14991 2 syms_7; AGroup 14993 2 syms_8; AGroup 14995 2 syms_9; AGroup 14997 2 syms_10;
     AGroup 15003 2 syms_11; SGroup 7132 2 syms_12; SGroup 6248 3 syms_13; SGroup 7079 4 syms_14;
     AGroup 14999 5 syms_15; SGroup 7054 14 syms_17]);
   (210251, 20, [AGroup 5 1 [sym_ppDirective]; AGroup 47 1 [anon_sym_LPAREN]; AGroup 51 1 [anon_sym_POUND];
     AGroup 73 1 [sym_kSpecialize]; AGroup 105 1 [sym_kInherited]; AGroup 117 1 [sym_kString];
     AGroup 11060 1 [anon_sym_LBRACK]; AGroup 15829 1 [sym_kIf]; AGroup 3 2 syms_5;
     AGroup 49 2 syms_6; AGroup 53 2 syms_7; AGroup 55 2 syms_8; AGroup 61 2 syms_9;
     AGroup 63 2 syms_10; AGroup 11080 2 syms_11; SGroup 7888 2 syms_12; SGroup 6994 3 syms_13;
     SGroup 7722 4 syms_14; AGroup 65 5 syms_15; SGroup 7765 14 syms_17]);
   (210342, 20, [AGroup 5 1 [sym_ppDirective]; AGroup 16405 1 [anon_sym_LBRACK];
     AGroup 16407 1 [anon_sym_LPAREN]; AGroup 16411 1 [anon_sym_POUND];
     AGroup 16425 1 [sym_kSpecialize]; AGroup 16429 1 [sym_kIf]; AGroup 16431 1 [sym_kInherited];
     AGroup 18223 1 [sym_kString]; AGroup 3 2 syms_5; AGroup 16409 2 syms_6;
     AGroup 16413 2 syms_7; AGroup 16415 2 syms_8; AGroup 16417 2 syms_9; AGroup 16419 2 syms_10;
     AGroup 16427 2 syms_11; SGroup 9247 2 syms_12; SGroup 7508 3 syms_13; SGroup 9745 4 syms_14;
     AGroup 16421 5 syms_15; SGroup 8844 14 syms_17]);
   (210433, 20, [AGroup 5 1 [sym_ppDirective]; AGroup 15761 1 [anon_sym_LBRACK];
     AGroup 15763 1 [anon_sym_LPAREN]; AGroup 15767 1 [anon_sym_POUND];
     AGroup 15781 1 [sym_kSpecialize]; AGroup 15787 1 [sym_kInherited]; AGroup 16229 1 [sym_kIf];
     AGroup 17864 1 [sym_kString]; AGroup 3 2 syms_5; AGroup 15765 2 syms_6;
     AGroup 15769 2 syms_7; AGroup 15771 2 syms_8; AGroup 15783 2 syms_11; AGroup 16221 2 syms_9;
     AGroup 16223 2 syms_10; SGroup 9180 2 syms_12; SGroup 7467 3 syms_13;
     SGroup 10156 4 syms_14; AGroup 16225 5 syms_15; SGroup 9076 14 syms_17]);
   (210524, 20, [AGroup 5 1 [sym_ppDirective]; AGroup 15761 1 [anon_sym_LBRACK];
     AGroup 15763 1 [anon_sym_LPAREN]; AGroup 15767 1 [anon_sym_POUND];
     AGroup 15781 1 [sym_kSpecialize]; AGroup 15787 1 [sym_kInherited]; AGroup 16229 1 [sym_kIf];
     AGroup 17864 1 [sym_kString]; AGroup 3 2 syms_5; AGroup 15765 2 syms_6;
     AGroup 15769 2 syms_7; AGroup 15771 2 syms_8; AGroup 15783 2 syms_11; AGroup 16221 2 syms_9;
     AGroup 16223 2 syms_10; SGroup 9180 2 syms_12; SGroup 7467 3 syms_13;
     SGroup 10159 4 syms_14; AGroup 16225 5 syms_15; SGroup 9076 14 syms_17]);
   (210615, 20, [AGroup 5 1 [sym_ppDirective]; AGroup 16715 1 [anon_sym_LBRACK];
     AGroup 16717 1 [anon_sym_LPAREN]; AGroup 16721 1 [anon_sym_POUND];
     AGroup 16735 1 [sym_kSpecialize]; AGroup 16739 1 [sym_kIf]; AGroup 16741 1 [sym_kInherited];
     AGroup 18201 1 [sym_kString]; AGroup 3 2 syms_5; AGroup 16719 2 syms_6;
     AGroup 16723 2 syms_7; AGroup 16725 2 syms_8; AGroup 16727 2 syms_9; AGroup 16729 2 syms_10;
     AGroup 16737 2 syms_11; SGroup 7901 2 syms_12; SGroup 7014 3 syms_13; SGroup 8517 4 syms_14;
     AGroup 16731 5 syms_15; SGroup 7757 14 syms_17]);
   (210706, 20, [AGroup 5 1 [sym_ppDirective]; AGroup 15831 1 [anon_sym_LBRACK];
     AGroup 15833 1 [anon_sym_LPAREN]; AGroup 15837 1 [anon_sym_POUND];
     AGroup 15851 1 [sym_kSpecialize]; AGroup 15855 1 [sym_kIf]; AGroup 15857 1 [sym_kInherited];
     AGroup 17312 1 [sym_kString]; AGroup 3 2 syms_5; AGroup 15835 2 syms_6;
     AGroup 15839 2 syms_7; AGroup 15841 2 syms_8; AGroup 15843 2 syms_9; AGroup 15845 2 syms_10;
     AGroup 15853 2 syms_11; SGroup 9267 2 syms_12; SGroup 7556 3 syms_13;
     SGroup 10082 4 syms_14; AGroup 15847 5 syms_15; SGroup 8649 14 syms_17]);
   (210797, 20, [AGroup 5 1 [sym_ppDirective]; AGroup 16405 1 [anon_sym_LBRACK];
     AGroup 16407 1 [anon_sym_LPAREN]; AGroup 16411 1 [anon_sym_POUND];
     AGroup 16425 1 [sym_kSpecialize]; AGroup 16429 1 [sym_kIf]; AGroup 16431 1 [sym_kInherited];
     AGroup 18223 1 [sym_kString]; AGroup 3 2 syms_5; AGroup 16409 2 syms_6;
     AGroup 16413 2 syms_7; AGroup 16415 2 syms_8; AGroup 16417 2 syms_9; AGroup 16419 2 syms_10;
     AGroup 16427 2 syms_11; SGroup 9247 2 syms_12; SGroup 7508 3 syms_13; SGroup 9747 4 syms_14;
     AGroup 16421 5 syms_15; SGroup 8844 14 syms_17]);
   (210888, 20, [AGroup 5 1 [sym_ppDirective]; AGroup 15987 1 [anon_sym_LBRACK];
     AGroup 15989 1 [anon_sym_LPAREN]; AGroup 15993 1 [anon_sym_POUND];
     AGroup 16007 1 [sym_kSpecialize]; AGroup 16011 1 [sym_kIf]; AGroup 16013 1 [sym_kInherited];
     AGroup 18254 1 [sym_kString]; AGroup 3 2 syms_5; AGroup 15991 2 syms_6;
     AGroup 15995 2 syms_7; AGroup 15997 2 syms_8; AGroup 15999 2 syms_9; AGroup 16001 2 syms_10;
     AGroup 16009 2 syms_11; SGroup 9525 2 syms_12; SGroup 7769 3 syms_13;
     SGroup 10211 4 syms_14; AGroup 16003 5 syms_15; SGroup 9072 14 syms_17]);
   (210979, 20, [AGroup 5 1 [sym_ppDirective]; AGroup 15677 1 [anon_sym_LBRACK];
     AGroup 15679 1 [anon_sym_LPAREN]; AGroup 15683 1 [anon_sym_POUND];
     AGroup 15697 1 [sym_kSpecialize]; AGroup 15701 1 [sym_kIf]; AGroup 15703 1 [sym_kInherited];
     AGroup 17206 1 [sym_kString]; AGroup 3 2 syms_5; AGroup 15681 2 syms_6;
     AGroup 15685 2 syms_7; AGroup 15687 2 syms_8; AGroup 15689 2 syms_9; AGroup 15691 2 syms_10;
     AGroup 15699 2 syms_11; SGroup 8792 2 syms_12; SGroup 7321 3 syms_13; SGroup 8452 4 syms_14;
     AGroup 15693 5 syms_15; SGroup 8443 14 syms_17]);
   (211070, 20, [AGroup 5 1 [sym_ppDirective]; AGroup 15761 1 [anon_sym_LBRACK];
     AGroup 15763 1 [anon_sym_LPAREN]; AGroup 15767 1 [anon_sym_POUND];
     AGroup 15781 1 [sym_kSpecialize]; AGroup 15787 1 [sym_kInherited]; AGroup 16229 1 [sym_kIf];
     AGroup 17864 1 [sym_kString]; AGroup 3 2 syms_5; AGroup 15765 2 syms_6;
     AGroup 15769 2 syms_7; AGroup 15771 2 syms_8; AGroup 15783 2 syms_11; AGroup 16221 2 syms_9;
     AGroup 16223 2 syms_10; SGroup 9180 2 syms_12; SGroup 7467 3 syms_13;
     SGroup 10212 4 syms_14; AGroup 16225 5 syms_15; SGroup 9076 14 syms_17]);
   (211161, 21, [AGroup 5 1 [sym_ppDirective]; AGroup 16191 1 [anon_sym_LBRACK];
     AGroup 16193 1 [anon_sym_LPAREN]; AGroup 16197 1 [anon_sym_POUND]; AGroup 16205 1 [sym_kAt];
     AGroup 16211 1 [sym_kSpecialize]; AGroup 16215 1 [sym_kIf]; AGroup 16217 1 [sym_kInherited];
     AGroup 16882 1 [sym_kString]; AGroup 18508 1 [sym_kNot]; AGroup 3 2 syms_5;
     AGroup 16195 2 syms_6; AGroup 16199 2 syms_7; AGroup 16201 2 syms_8; AGroup 16203 2 syms_9;
     AGroup 16213 2 syms_11; SGroup 7995 2 syms_12; SGroup 7098 3 syms_13; SGroup 7798 4 syms_14;
     AGroup 16207 5 syms_15; SGroup 7895 14 syms_17]);
   (211254, 20, [AGroup 5 1 [sym_ppDirective]; AGroup 15647 1 [anon_sym_LBRACK];
     AGroup 15653 1 [anon_sym_POUND]; AGroup 15667 1 [sym_kSpecialize];
     AGroup 15673 1 [sym_kInherited]; AGroup 15675 1 [sym_kString];
     AGroup 15745 1 [anon_sym_LPAREN]; AGroup 15755 1 [sym_kIf]; AGroup 3 2 syms_5;
     AGroup 15651 2 syms_6; AGroup 15655 2 syms_7; AGroup 15657 2 syms_8; AGroup 15669 2 syms_11;
     AGroup 15747 2 syms_9; AGroup 15749 2 syms_10; SGroup 8129 2 syms_12; SGroup 7100 3 syms_13;
     SGroup 10216 4 syms_14; AGroup 15751 5 syms_15; SGroup 8464 14 syms_17]);
   (211345, 20, [AGroup 5 1 [sym_ppDirective]; AGroup 16191 1 [anon_sym_LBRACK];
     AGroup 16193 1 [anon_sym_LPAREN]; AGroup 16197 1 [anon_sym_POUND];
     AGroup 16211 1 [sym_kSpecialize]; AGroup 16215 1 [sym_kIf]; AGroup 16217 1 [sym_kInherited];
     AGroup 16882 1 [sym_kString]; AGroup 3 2 syms_5; AGroup 16195 2 syms_6;
     AGroup 16199 2 syms_7; AGroup 16201 2 syms_8; AGroup 16203 2 syms_9; AGroup 16205 2 syms_10;
     AGroup 16213 2 syms_11; SGroup 7995 2 syms_12; SGroup 7098 3 syms_13; SGroup 7803 4 syms_14;
     AGroup 16207 5 syms_15; SGroup 7895 14 syms_17])
  ].

(** States 5059 to 5158. *)
Definition small_runs_5059 : list small_run :=
  [
   (211436, 20, [AGroup 5 1 [sym_ppDirective]; AGroup 15647 1 [anon_sym_LBRACK];
     AGroup 15653 1 [anon_sym_POUND]; AGroup 15667 1 [sym_kSpecialize]; AGroup 15671 1 [sym_kIf];
     AGroup 15673 1 [sym_kInherited]; AGroup 15675 1 [sym_kString];
     AGroup 15745 1 [anon_sym_LPAREN]; AGroup 3 2 syms_5; AGroup 15651 2 syms_6;
     AGroup 15655 2 syms_7; AGroup 15657 2 syms_8; AGroup 15659 2 syms_9; AGroup 15661 2 syms_10;
     AGroup 15669 2 syms_11; SGroup 8129 2 syms_12; SGroup 7100 3 syms_13; SGroup 9320 4 syms_14;
     AGroup 15663 5 syms_15; SGroup 7786 14 syms_17]);
   (211527, 20, [AGroup 5 1 [sym_ppDirective]; AGroup 16405 1 [anon_sym_LBRACK];
     AGroup 16407 1 [anon_sym_LPAREN]; AGroup 16411 1 [anon_sym_POUND];
     AGroup 16425 1 [sym_kSpecialize]; AGroup 16429 1 [sym_kIf]; AGroup 16431 1 [sym_kInherited];
     AGroup 18223 1 [sym_kString]; AGroup 3 2 syms_5; AGroup 16409 2 syms_6;
     AGroup 16413 2 syms_7; AGroup 16415 2 syms_8; AGroup 16417 2 syms_9; AGroup 16419 2 syms_10;
     AGroup 16427 2 syms_11; SGroup 9247 2 syms_12; SGroup 7508 3 syms_13; SGroup 9761 4 syms_14;
     AGroup 16421 5 syms_15; SGroup 8844 14 syms_17]);
   (211618, 20, [AGroup 5 1 [sym_ppDirective]; AGroup 15761 1 [anon_sym_LBRACK];
     AGroup 15763 1 [anon_sym_LPAREN]; AGroup 15767 1 [anon_sym_POUND];
     AGroup 15781 1 [sym_kSpecialize]; AGroup 15787 1 [sym_kInherited]; AGroup 16229 1 [sym_kIf];
     AGroup 17864 1 [sym_kString]; AGroup 3 2 syms_5; AGroup 15765 2 syms_6;
     AGroup 15769 2 syms_7; AGroup 15771 2 syms_8; AGroup 15783 2 syms_11; AGroup 16221 2 syms_9;
     AGroup 16223 2 syms_10; SGroup 9180 2 syms_12; SGroup 7467 3 syms_13;
     SGroup 10223 4 syms_14; AGroup 16225 5 syms_15; SGroup 9076 14 syms_17]);
   (211709, 20, [AGroup 5 1 [sym_ppDirective]; AGroup 15761 1 [anon_sym_LBRACK];
     AGroup 15763 1 [anon_sym_LPAREN]; AGroup 15767 1 [anon_sym_POUND];
     AGroup 15781 1 [sym_kSpecialize]; AGroup 15787 1 [sym_kInherited]; AGroup 16229 1 [sym_kIf];
     AGroup 17864 1 [sym_kString]; AGroup 3 2 syms_5; AGroup 15765 2 syms_6;
     AGroup 15769 2 syms_7; AGroup 15771 2 syms_8; AGroup 15783 2 syms_11; AGroup 16221 2 syms_9;
     AGroup 16223 2 syms_10; SGroup 9180 2 syms_12; SGroup 7467 3 syms_13;
     SGroup 10224 4 syms_14; AGroup 16225 5 syms_15; SGroup 9076 14 syms_17]);
   (211800, 20, [AGroup 5 1 [sym_ppDirective]; AGroup 16715 1 [anon_sym_LBRACK];
     AGroup 16717 1 [anon_sym_LPAREN]; AGroup 16721 1 [anon_sym_POUND];
     AGroup 16735 1 [sym_kSpecialize]; AGroup 16739 1 [sym_kIf]; AGroup 16741 1 [sym_kInherited];
     AGroup 18201 1 [sym_kString]; AGroup 3 2 syms_5; AGroup 16719 2 syms_6;
     AGroup 16723 2 syms_7; AGroup 16725 2 syms_8; AGroup 16727 2 syms_9; AGroup 16729 2 syms_10;
     AGroup 16737 2 syms_11; SGroup 7901 2 syms_12; SGroup 7014 3 syms_13; SGroup 8537 4 syms_14;
     AGroup 16731 5 syms_15; SGroup 7757 14 syms_17]);
   (211891, 20, [AGroup 5 1 [sym_ppDirective]; AGroup 15831 1 [anon_sym_LBRACK];
     AGroup 15833 1 [anon_sym_LPAREN]; AGroup 15837 1 [anon_sym_POUND];
     AGroup 15851 1 [sym_kSpecialize]; AGroup 15855 1 [sym_kIf]; AGroup 15857 1 [sym_kInherited];
     AGroup 17312 1 [sym_kString]; AGroup 3 2 syms_5; AGroup 15835 2 syms_6;
     AGroup 15839 2 syms_7; AGroup 15841 2 syms_8; AGroup 15843 2 syms_9; AGroup 15845 2 syms_10;
     AGroup 15853 2 syms_11; SGroup 9267 2 syms_12; SGroup 7556 3 syms_13;
     SGroup 10163 4 syms_14; AGroup 15847 5 syms_15; SGroup 8649 14 syms_17]);
   (211982, 20, [AGroup 5 1 [sym_ppDirective]; AGroup 16405 1 [anon_sym_LBRACK];
     AGroup 16407 1 [anon_sym_LPAREN]; AGroup 16411 1 [anon_sym_POUND];
     AGroup 16425 1 [sym_kSpecialize]; AGroup 16429 1 [sym_kIf]; AGroup 16431 1 [sym_kInherited];
     AGroup 18223 1 [sym_kString]; AGroup 3 2 syms_5; AGroup 16409 2 syms_6;
     AGroup 16413 2 syms_7; AGroup 16415 2 syms_8; AGroup 16417 2 syms_9; AGroup 16419 2 syms_10;
     AGroup 16427 2 syms_11; SGroup 9247 2 syms_12; SGroup 7508 3 syms_13; SGroup 9764 4 syms_14;
     AGroup 16421 5 syms_15; SGroup 8844 14 syms_17]);
   (212073, 20, [AGroup 5 1 [sym_ppDirective]; AGroup 15987 1 [anon_sym_LBRACK];
     AGroup 15989 1 [anon_sym_LPAREN]; AGroup 15993 1 [anon_sym_POUND];
     AGroup 16007 1 [sym_kSpecialize]; AGroup 16011 1 [sym_kIf]; AGroup 16013 1 [sym_kInherited];
     AGroup 18254 1 [sym_kString]; AGroup 3 2 syms_5; AGroup 15991 2 syms_6;
     AGroup 15995 2 syms_7; AGroup 15997 2 syms_8; AGroup 15999 2 syms_9; AGroup 16001 2 syms_10;
     AGroup 16009 2 syms_11; SGroup 9525 2 syms_12; SGroup 7769 3 syms_13;
     SGroup 10239 4 syms_14; AGroup 16003 5 syms_15; SGroup 9072 14 syms_17]);
   (212164, 31, [AGroup 5 1 [sym_ppDirective]; AGroup 13347 1 [anon_sym_LBRACK];
     AGroup 13351 1 [aux_sym_ppUsesBlock_token1]; AGroup 13365 1 [sym_identifier];
     AGroup 13367 1 [sym_kGeneric]; AGroup 13369 1 [sym_kOperator]; AGroup 13373 1 [sym_kStrict];
     AGroup 13377 1 [sym_kCase]; AGroup 13379 1 [sym_kClass]; AGroup 13391 1 [sym_kProperty];
     AGroup 13395 1 [sym_kType]; AGroup 18510 1 [anon_sym_SEMI]; AGroup 18512 1 [sym_kEnd];
     SGroup 2 1 [sym__ppIf]; SGroup 6354 1 [sym__visibility]; SGroup 9779 1 [sym_ppBlock];
     SGroup 9835 1 [sym__declOperator]; SGroup 10247 1 [sym__declProc];
     SGroup 10617 1 [sym_rttiAttributes]; SGroup 10730 1 [aux_sym_rttiAttributes_repeat2];
     SGroup 13987 1 [aux_sym_genericArg_repeat1]; SGroup 14434 1 [sym_declVariant];
     SGroup 14701 1 [sym__declClass]; AGroup 3 2 syms_5; AGroup 13381 2 syms_65;
     AGroup 13393 2 syms_66; SGroup 5685 2 syms_68; SGroup 10490 3 syms_69;
     AGroup 13383 4 syms_3; AGroup 13371 6 syms_70; SGroup 6150 6 syms_71]);
   (212277, 20, [AGroup 5 1 [sym_ppDirective]; AGroup 15677 1 [anon_sym_LBRACK];
     AGroup 15679 1 [anon_sym_LPAREN]; AGroup 15683 1 [anon_sym_POUND];
     AGroup 15697 1 [sym_kSpecialize]; AGroup 15701 1 [sym_kIf]; AGroup 15703 1 [sym_kInherited];
     AGroup 17206 1 [sym_kString]; AGroup 3 2 syms_5; AGroup 15681 2 syms_6;
     AGroup 15685 2 syms_7; AGroup 15687 2 syms_8; AGroup 15689 2 syms_9; AGroup 15691 2 syms_10;
     AGroup 15699 2 syms_11; SGroup 8792 2 syms_12; SGroup 7321 3 syms_13; SGroup 8460 4 syms_14;
     AGroup 15693 5 syms_15; SGroup 8443 14 syms_17]);
   (212368, 20, [AGroup 5 1 [sym_ppDirective]; AGroup 15761 1 [anon_sym_LBRACK];
     AGroup 15763 1 [anon_sym_LPAREN]; AGroup 15767 1 [anon_sym_POUND];
     AGroup 15781 1 [sym_kSpecialize]; AGroup 15787 1 [sym_kInherited]; AGroup 16229 1 [sym_kIf];
     AGroup 17864 1 [sym_kString]; AGroup 3 2 syms_5; AGroup 15765 2 syms_6;
     AGroup 15769 2 syms_7; AGroup 15771 2 syms_8; AGroup 15783 2 syms_11; AGroup 16221 2 syms_9;
     AGroup 16223 2 syms_10; SGroup 9180 2 syms_12; SGroup 7467 3 syms_13;
     SGroup 10243 4 syms_14; AGroup 16225 5 syms_15; SGroup 9076 14 syms_17]);
   (212459, 20, [AGroup 5 1 [sym_ppDirective]; AGroup 15755 1 [sym_kIf]; AGroup 16191 1 [anon_sym_LBRACK];
     AGroup 16193 1 [anon_sym_LPAREN]; AGroup 16197 1 [anon_sym_POUND];
     AGroup 16211 1 [sym_kSpecialize]; AGroup 16217 1 [sym_kInherited];
     AGroup 16882 1 [sym_kString]; AGroup 3 2 syms_5; AGroup 15747 2 syms_9;
     AGroup 15749 2 syms_10; AGroup 16195 2 syms_6; AGroup 16199 2 syms_7; AGroup 16201 2 syms_8;
     AGroup 16213 2 syms_11; SGroup 7995 2 syms_12; SGroup 7098 3 syms_13;
     SGroup 10279 4 syms_14; AGroup 18514 5 syms_15; SGroup 7830 14 syms_17]);
   (212550, 20, [AGroup 5 1 [sym_ppDirective]; AGroup 15647 1 [anon_sym_LBRACK];
     AGroup 15653 1 [anon_sym_POUND]; AGroup 15667 1 [sym_kSpecialize];
     AGroup 15673 1 [sym_kInherited]; AGroup 15675 1 [sym_kString];
     AGroup 15745 1 [anon_sym_LPAREN]; AGroup 15755 1 [sym_kIf]; AGroup 3 2 syms_5;
     AGroup 15651 2 syms_6; AGroup 15655 2 syms_7; AGroup 15657 2 syms_8; AGroup 15669 2 syms_11;
     AGroup 15747 2 syms_9; AGroup 15749 2 syms_10; SGroup 8129 2 syms_12; SGroup 7100 3 syms_13;
     SGroup 9831 4 syms_14; AGroup 15751 5 syms_15; SGroup 8464 14 syms_17]);
   (212641, 20, [AGroup 5 1 [sym_ppDirective]; AGroup 15959 1 [anon_sym_LBRACK];
     AGroup 15961 1 [anon_sym_LPAREN]; AGroup 15965 1 [anon_sym_POUND];
     AGroup 15977 1 [sym_kSpecialize]; AGroup 15981 1 [sym_kIf]; AGroup 15983 1 [sym_kInherited];
     AGroup 15985 1 [sym_kString]; AGroup 3 2 syms_5; AGroup 15963 2 syms_6;
     AGroup 15967 2 syms_7; AGroup 15969 2 syms_8; AGroup 15971 2 syms_9; AGroup 15973 2 syms_10;
     AGroup 15979 2 syms_11; SGroup 7734 2 syms_12; SGroup 6950 3 syms_13; SGroup 7355 4 syms_14;
     AGroup 15975 5 syms_15; SGroup 7373 14 syms_17]);
   (212732, 20, [AGroup 5 1 [sym_ppDirective]; AGroup 15677 1 [anon_sym_LBRACK];
     AGroup 15679 1 [anon_sym_LPAREN]; AGroup 15683 1 [anon_sym_POUND];
     AGroup 15697 1 [sym_kSpecialize]; AGroup 15701 1 [sym_kIf]; AGroup 15703 1 [sym_kInherited];
     AGroup 17206 1 [sym_kString]; AGroup 3 2 syms_5; AGroup 15681 2 syms_6;
     AGroup 15685 2 syms_7; AGroup 15687 2 syms_8; AGroup 15689 2 syms_9; AGroup 15691 2 syms_10;
     AGroup 15699 2 syms_11; SGroup 8792 2 syms_12; SGroup 7321 3 syms_13; SGroup 8461 4 syms_14;
     AGroup 15693 5 syms_15; SGroup 8443 14 syms_17]);
   (212823, 20, [AGroup 5 1 [sym_ppDirective]; AGroup 15677 1 [anon_sym_LBRACK];
     AGroup 15679 1 [anon_sym_LPAREN]; AGroup 15683 1 [anon_sym_POUND];
     AGroup 15697 1 [sym_kSpecialize]; AGroup 15701 1 [sym_kIf]; AGroup 15703 1 [sym_kInherited];
     AGroup 17206 1 [sym_kString]; AGroup 3 2 syms_5; AGroup 15681 2 syms_6;
     AGroup 15685 2 syms_7; AGroup 15687 2 syms_8; AGroup 15689 2 syms_9; AGroup 15691 2 syms_10;
     AGroup 15699 2 syms_11; SGroup 8792 2 syms_12; SGroup 7321 3 syms_13; SGroup 8462 4 syms_14;
     AGroup 15693 5 syms_15; SGroup 8443 14 syms_17]);
   (212914, 20, [AGroup 5 1 [sym_ppDirective]; AGroup 16405 1 [anon_sym_LBRACK];
     AGroup 16407 1 [anon_sym_LPAREN]; AGroup 16411 1 [anon_sym_POUND];
     AGroup 16425 1 [sym_kSpecialize]; AGroup 16429 1 [sym_kIf]; AGroup 16431 1 [sym_kInherited];
     AGroup 18223 1 [sym_kString]; AGroup 3 2 syms_5; AGroup 16409 2 syms_6;
     AGroup 16413 2 syms_7; AGroup 16415 2 syms_8; AGroup 16417 2 syms_9; AGroup 16419 2 syms_10;
     AGroup 16427 2 syms_11; SGroup 9247 2 syms_12; SGroup 7508 3 syms_13; SGroup 9774 4 syms_14;
     AGroup 16421 5 syms_15; SGroup 8844 14 syms_17]);
   (213005, 21, [AGroup 5 1 [sym_ppDirective]; AGroup 15677 1 [anon_sym_LBRACK];
     AGroup 15679 1 [anon_sym_LPAREN]; AGroup 15683 1 [anon_sym_POUND]; AGroup 15691 1 [sym_kAt];
     AGroup 15697 1 [sym_kSpecialize]; AGroup 15701 1 [sym_kIf]; AGroup 15703 1 [sym_kInherited];
     AGroup 17206 1 [sym_kString]; AGroup 18516 1 [sym_kNot]; AGroup 3 2 syms_5;
     AGroup 15681 2 syms_6; AGroup 15685 2 syms_7; AGroup 15687 2 syms_8; AGroup 15689 2 syms_9;
     AGroup 15699 2 syms_11; SGroup 8792 2 syms_12; SGroup 7321 3 syms_13; SGroup 8462 4 syms_14;
     AGroup 15693 5 syms_15; SGroup 8443 14 syms_17]);
   (213098, 20, [AGroup 5 1 [sym_ppDirective]; AGroup 15761 1 [anon_sym_LBRACK];
     AGroup 15763 1 [anon_sym_LPAREN]; AGroup 15767 1 [anon_sym_POUND];
     AGroup 15781 1 [sym_kSpecialize]; AGroup 15787 1 [sym_kInherited]; AGroup 16229 1 [sym_kIf];
     AGroup 17864 1 [sym_kString]; AGroup 3 2 syms_5; AGroup 15765 2 syms_6;
     AGroup 15769 2 syms_7; AGroup 15771 2 syms_8; AGroup 15783 2 syms_11; AGroup 16221 2 syms_9;
     AGroup 16223 2 syms_10; SGroup 9180 2 syms_12; SGroup 7467 3 syms_13; SGroup 9843 4 syms_14;
     AGroup 16225 5 syms_15; SGroup 9076 14 syms_17]);
   (213189, 20, [AGroup 5 1 [sym_ppDirective]; AGroup 15761 1 [anon_sym_LBRACK];
     AGroup 15763 1 [anon_sym_LPAREN]; AGroup 15767 1 [anon_sym_POUND];
     AGroup 15781 1 [sym_kSpecialize]; AGroup 15787 1 [sym_kInherited]; AGroup 16229 1 [sym_kIf];
     AGroup 17864 1 [sym_kString]; AGroup 3 2 syms_5; AGroup 15765 2 syms_6;
     AGroup 15769 2 syms_7; AGroup 15771 2 syms_8; AGroup 15783 2 syms_11; AGroup 16221 2 syms_9;
     AGroup 16223 2 syms_10; SGroup 9180 2 syms_12; SGroup 7467 3 syms_13; SGroup 9845 4 syms_14;
     AGroup 16225 5 syms_15; SGroup 9076 14 syms_17]);
   (213280, 20, [AGroup 5 1 [sym_ppDirective]; AGroup 16715 1 [anon_sym_LBRACK];
     AGroup 16717 1 [anon_sym_LPAREN]; AGroup 16721 1 [anon_sym_POUND];
     AGroup 16735 1 [sym_kSpecialize]; AGroup 16739 1 [sym_kIf]; AGroup 16741 1 [sym_kInherited];
     AGroup 18201 1 [sym_kString]; AGroup 3 2 syms_5; AGroup 16719 2 syms_6;
     AGroup 16723 2 syms_7; AGroup 16725 2 syms_8; AGroup 16727 2 syms_9; AGroup 16729 2 syms_10;
     AGroup 16737 2 syms_11; SGroup 7901 2 syms_12; SGroup 7014 3 syms_13; SGroup 8553 4 syms_14;
     AGroup 16731 5 syms_15; SGroup 7757 14 syms_17]);
   (213371, 20, [AGroup 5 1 [sym_ppDirective]; AGroup 15831 1 [anon_sym_LBRACK];
     AGroup 15833 1 [anon_sym_LPAREN]; AGroup 15837 1 [anon_sym_POUND];
     AGroup 15851 1 [sym_kSpecialize]; AGroup 15855 1 [sym_kIf]; AGroup 15857 1 [sym_kInherited];
     AGroup 17312 1 [sym_kString]; AGroup 3 2 syms_5; AGroup 15835 2 syms_6;
     AGroup 15839 2 syms_7; AGroup 15841 2 syms_8; AGroup 15843 2 syms_9; AGroup 15845 2 syms_10;
     AGroup 15853 2 syms_11; SGroup 9267 2 syms_12; SGroup 7556 3 syms_13;
     SGroup 10231 4 syms_14; AGroup 15847 5 syms_15; SGroup 8649 14 syms_17]);
   (213462, 20, [AGroup 5 1 [sym_ppDirective]; AGroup 16405 1 [anon_sym_LBRACK];
     AGroup 16407 1 [anon_sym_LPAREN]; AGroup 16411 1 [anon_sym_POUND];
     AGroup 16425 1 [sym_kSpecialize]; AGroup 16429 1 [sym_kIf]; AGroup 16431 1 [sym_kInherited];
     AGroup 18223 1 [sym_kString]; AGroup 3 2 syms_5; AGroup 16409 2 syms_6;
     AGroup 16413 2 syms_7; AGroup 16415 2 syms_8; AGroup 16417 2 syms_9; AGroup 16419 2 syms_10;
     AGroup 16427 2 syms_11; SGroup 9247 2 syms_12; SGroup 7508 3 syms_13; SGroup 9776 4 syms_14;
     AGroup 16421 5 syms_15; SGroup 8844 14 syms_17]);
   (213553, 20, [AGroup 5 1 [sym_ppDirective]; AGroup 15987 1 [anon_sym_LBRACK];
     AGroup 15989 1 [anon_sym_LPAREN]; AGroup 15993 1 [anon_sym_POUND];
     AGroup 16007 1 [sym_kSpecialize]; AGroup 16011 1 [sym_kIf]; AGroup 16013 1 [sym_kInherited];
     AGroup 18254 1 [sym_kString]; AGroup 3 2 syms_5; AGroup 15991 2 syms_6;
     AGroup 15995 2 syms_7; AGroup 15997 2 syms_8; AGroup 15999 2 syms_9; AGroup 16001 2 syms_10;
     AGroup 16009 2 syms_11; SGroup 9525 2 syms_12; SGroup 7769 3 syms_13; SGroup 9855 4 syms_14;
     AGroup 16003 5 syms_15; SGroup 9072 14 syms_17]);
   (213644, 20, [AGroup 5 1 [sym_ppDirective]; AGroup 15677 1 [anon_sym_LBRACK];
     AGroup 15679 1 [anon_sym_LPAREN]; AGroup 15683 1 [anon_sym_POUND];
     AGroup 15697 1 [sym_kSpecialize]; AGroup 15701 1 [sym_kIf]; AGroup 15703 1 [sym_kInherited];
     AGroup 17206 1 [sym_kString]; AGroup 3 2 syms_5; AGroup 15681 2 syms_6;
     AGroup 15685 2 syms_7; AGroup 15687 2 syms_8; AGroup 15689 2 syms_9; AGroup 15691 2 syms_10;
     AGroup 15699 2 syms_11; SGroup 8792 2 syms_12; SGroup 7321 3 syms_13; SGroup 8463 4 syms_14;
     AGroup 15693 5 syms_15; SGroup 8443 14 syms_17]);
   (213735, 20, [AGroup 5 1 [sym_ppDirective]; AGroup 15959 1 [anon_sym_LBRACK];
     AGroup 15961 1 [anon_sym_LPAREN]; AGroup 15965 1 [anon_sym_POUND];
     AGroup 15977 1 [sym_kSpecialize]; AGroup 15981 1 [sym_kIf]; AGroup 15983 1 [sym_kInherited];
     AGroup 15985 1 [sym_kString]; AGroup 3 2 syms_5; AGroup 15963 2 syms_6;
     AGroup 15967 2 syms_7; AGroup 15969 2 syms_8; AGroup 15971 2 syms_9; AGroup 15973 2 syms_10;
     AGroup 15979 2 syms_11; SGroup 7734 2 syms_12; SGroup 6950 3 syms_13; SGroup 7374 4 syms_14;
     AGroup 15975 5 syms_15; SGroup 7373 14 syms_17]);
   (213826, 20, [AGroup 5 1 [sym_ppDirective]; AGroup 15761 1 [anon_sym_LBRACK];
     AGroup 15763 1 [anon_sym_LPAREN]; AGroup 15767 1 [anon_sym_POUND];
     AGroup 15781 1 [sym_kSpecialize]; AGroup 15787 1 [sym_kInherited]; AGroup 16229 1 [sym_kIf];
     AGroup 17864 1 [sym_kString]; AGroup 3 2 syms_5; AGroup 15765 2 syms_6;
     AGroup 15769 2 syms_7; AGroup 15771 2 syms_8; AGroup 15783 2 syms_11; AGroup 16221 2 syms_9;
     AGroup 16223 2 syms_10; SGroup 9180 2 syms_12; SGroup 7467 3 syms_13; SGroup 9858 4 syms_14;
     AGroup 16225 5 syms_15; SGroup 9076 14 syms_17]);
   (213917, 20, [AGroup 5 1 [sym_ppDirective]; AGroup 16191 1 [anon_sym_LBRACK];
     AGroup 16193 1 [anon_sym_LPAREN]; AGroup 16197 1 [anon_sym_POUND];
     AGroup 16211 1 [sym_kSpecialize]; AGroup 16215 1 [sym_kIf]; AGroup 16217 1 [sym_kInherited];
     AGroup 16882 1 [sym_kString]; AGroup 3 2 syms_5; AGroup 16195 2 syms_6;
     AGroup 16199 2 syms_7; AGroup 16201 2 syms_8; AGroup 16203 2 syms_9; AGroup 16205 2 syms_10;
     AGroup 16213 2 syms_11; SGroup 7995 2 syms_12; SGroup 7098 3 syms_13; SGroup 7907 4 syms_14;
     AGroup 16207 5 syms_15; SGroup 7895 14 syms_17]);
   (214008, 20, [AGroup 5 1 [sym_ppDirective]; AGroup 15647 1 [anon_sym_LBRACK];
     AGroup 15653 1 [anon_sym_POUND]; AGroup 15667 1 [sym_kSpecialize];
     AGroup 15673 1 [sym_kInherited]; AGroup 15675 1 [sym_kString];
     AGroup 15745 1 [anon_sym_LPAREN]; AGroup 15755 1 [sym_kIf]; AGroup 3 2 syms_5;
     AGroup 15651 2 syms_6; AGroup 15655 2 syms_7; AGroup 15657 2 syms_8; AGroup 15669 2 syms_11;
     AGroup 15747 2 syms_9; AGroup 15749 2 syms_10; SGroup 8129 2 syms_12; SGroup 7100 3 syms_13;
     SGroup 9859 4 syms_14; AGroup 15751 5 syms_15; SGroup 8464 14 syms_17]);
   (214099, 20, [AGroup 5 1 [sym_ppDirective]; AGroup 15959 1 [anon_sym_LBRACK];
     AGroup 15961 1 [anon_sym_LPAREN]; AGroup 15965 1 [anon_sym_POUND];
     AGroup 15977 1 [sym_kSpecialize]; AGroup 15981 1 [sym_kIf]; AGroup 15983 1 [sym_kInherited];
     AGroup 15985 1 [sym_kString]; AGroup 3 2 syms_5; AGroup 15963 2 syms_6;
     AGroup 15967 2 syms_7; AGroup 15969 2 syms_8; AGroup 15971 2 syms_9; AGroup 15973 2 syms_10;
     AGroup 15979 2 syms_11; SGroup 7734 2 syms_12; SGroup 6950 3 syms_13; SGroup 7375 4 syms_14;
     AGroup 15975 5 syms_15; SGroup 7373 14 syms_17]);
   (214190, 20, [AGroup 5 1 [sym_ppDirective]; AGroup 15677 1 [anon_sym_LBRACK];
     AGroup 15679 1 [anon_sym_LPAREN]; AGroup 15683 1 [anon_sym_POUND];
     AGroup 15697 1 [sym_kSpecialize]; AGroup 15703 1 [sym_kInherited]; AGroup 15755 1 [sym_kIf];
     AGroup 17206 1 [sym_kString]; AGroup 3 2 syms_5; AGroup 15681 2 syms_6;
     AGroup 15685 2 syms_7; AGroup 15687 2 syms_8; AGroup 15699 2 syms_11; AGroup 15747 2 syms_9;
     AGroup 15749 2 syms_10; SGroup 8792 2 syms_12; SGroup 7321 3 syms_13;
     SGroup 10274 4 syms_14; AGroup 18518 5 syms_15; SGroup 8465 14 syms_17]);
   (214281, 20, [AGroup 5 1 [sym_ppDirective]; AGroup 15761 1 [anon_sym_LBRACK];
     AGroup 15763 1 [anon_sym_LPAREN]; AGroup 15767 1 [anon_sym_POUND];
     AGroup 15781 1 [sym_kSpecialize]; AGroup 15787 1 [sym_kInherited]; AGroup 16229 1 [sym_kIf];
     AGroup 17864 1 [sym_kString]; AGroup 3 2 syms_5; AGroup 15765 2 syms_6;
     AGroup 15769 2 syms_7; AGroup 15771 2 syms_8; AGroup 15783 2 syms_11; AGroup 16221 2 syms_9;
     AGroup 16223 2 syms_10; SGroup 9180 2 syms_12; SGroup 7467 3 syms_13; SGroup 9867 4 syms_14;
     AGroup 16225 5 syms_15; SGroup 9076 14 syms_17]);
   (214372, 20, [AGroup 5 1 [sym_ppDirective]; AGroup 15761 1 [anon_sym_LBRACK];
     AGroup 15763 1 [anon_sym_LPAREN]; AGroup 15767 1 [anon_sym_POUND];
     AGroup 15781 1 [sym_kSpecialize]; AGroup 15787 1 [sym_kInherited]; AGroup 16229 1 [sym_kIf];
     AGroup 17864 1 [sym_kString]; AGroup 3 2 syms_5; AGroup 15765 2 syms_6;
     AGroup 15769 2 syms_7; AGroup 15771 2 syms_8; AGroup 15783 2 syms_11; AGroup 16221 2 syms_9;
     AGroup 16223 2 syms_10; SGroup 9180 2 syms_12; SGroup 7467 3 syms_13; SGroup 9870 4 syms_14;
     AGroup 16225 5 syms_15; SGroup 9076 14 syms_17]);
   (214463, 20, [AGroup 5 1 [sym_ppDirective]; AGroup 16715 1 [anon_sym_LBRACK];
     AGroup 16717 1 [anon_sym_LPAREN]; AGroup 16721 1 [anon_sym_POUND];
     AGroup 16735 1 [sym_kSpecialize]; AGroup 16739 1 [sym_kIf]; AGroup 16741 1 [sym_kInherited];
     AGroup 18201 1 [sym_kString]; AGroup 3 2 syms_5; AGroup 16719 2 syms_6;
     AGroup 16723 2 syms_7; AGroup 16725 2 syms_8; AGroup 16727 2 syms_9; AGroup 16729 2 syms_10;
     AGroup 16737 2 syms_11; SGroup 7901 2 syms_12; SGroup 7014 3 syms_13; SGroup 8577 4 syms_14;
     AGroup 16731 5 syms_15; SGroup 7757 14 syms_17]);
   (214554, 20, [AGroup 5 1 [sym_ppDirective]; AGroup 15831 1 [anon_sym_LBRACK];
     AGroup 15833 1 [anon_sym_LPAREN]; AGroup 15837 1 [anon_sym_POUND];
     AGroup 15851 1 [sym_kSpecialize]; AGroup 15855 1 [sym_kIf]; AGroup 15857 1 [sym_kInherited];
     AGroup 17312 1 [sym_kString]; AGroup 3 2 syms_5; AGroup 15835 2 syms_6;
     AGroup 15839 2 syms_7; AGroup 15841 2 syms_8; AGroup 15843 2 syms_9; AGroup 15845 2 syms_10;
     AGroup 15853 2 syms_11; SGroup 9267 2 syms_12; SGroup 7556 3 syms_13; SGroup 9848 4 syms_14;
     AGroup 15847 5 syms_15; SGroup 8649 14 syms_17]);
   (214645, 20, [AGroup 5 1 [sym_ppDirective]; AGroup 15987 1 [anon_sym_LBRACK];
     AGroup 15989 1 [anon_sym_LPAREN]; AGroup 15993 1 [anon_sym_POUND];
     AGroup 16007 1 [sym_kSpecialize]; AGroup 16011 1 [sym_kIf]; AGroup 16013 1 [sym_kInherited];
     AGroup 18254 1 [sym_kString]; AGroup 3 2 syms_5; AGroup 15991 2 syms_6;
     AGroup 15995 2 syms_7; AGroup 15997 2 syms_8; AGroup 15999 2 syms_9; AGroup 16001 2 syms_10;
     AGroup 16009 2 syms_11; SGroup 9525 2 syms_12; SGroup 7769 3 syms_13; SGroup 9881 4 syms_14;
     AGroup 16003 5 syms_15; SGroup 9072 14 syms_17]);
   (214736, 20, [AGroup 5 1 [sym_ppDirective]; AGroup 15959 1 [anon_sym_LBRACK];
     AGroup 15961 1 [anon_sym_LPAREN]; AGroup 15965 1 [anon_sym_POUND];
     AGroup 15977 1 [sym_kSpecialize]; AGroup 15981 1 [sym_kIf]; AGroup 15983 1 [sym_kInherited];
     AGroup 15985 1 [sym_kString]; AGroup 3 2 syms_5; AGroup 15963 2 syms_6;
     AGroup 15967 2 syms_7; AGroup 15969 2 syms_8; AGroup 15971 2 syms_9; AGroup 15973 2 syms_10;
     AGroup 15979 2 syms_11; SGroup 7734 2 syms_12; SGroup 6950 3 syms_13; SGroup 7379 4 syms_14;
     AGroup 15975 5 syms_15; SGroup 7373 14 syms_17]);
   (214827, 2, [AGroup 3 3 syms_1; AGroup 15596 47 syms_155]);
   (214882, 20, [AGroup 5 1 [sym_ppDirective]; AGroup 15761 1 [anon_sym_LBRACK];
     AGroup 15763 1 [anon_sym_LPAREN]; AGroup 15767 1 [anon_sym_POUND];
     AGroup 15781 1 [sym_kSpecialize]; AGroup 15787 1 [sym_kInherited]; AGroup 16229 1 [sym_kIf];
     AGroup 17864 1 [sym_kString]; AGroup 3 2 syms_5; AGroup 15765 2 syms_6;
     AGroup 15769 2 syms_7; AGroup 15771 2 syms_8; AGroup 15783 2 syms_11; AGroup 16221 2 syms_9;
     AGroup 16223 2 syms_10; SGroup 9180 2 syms_12; SGroup 7467 3 syms_13; SGroup 9888 4 syms_14;
     AGroup 16225 5 syms_15; SGroup 9076 14 syms_17]);
   (214973, 21, [AGroup 5 1 [sym_ppDirective]; AGroup 15959 1 [anon_sym_LBRACK];
     AGroup 15961 1 [anon_sym_LPAREN]; AGroup 15965 1 [anon_sym_POUND]; AGroup 15973 1 [sym_kAt];
     AGroup 15977 1 [sym_kSpecialize]; AGroup 15981 1 [sym_kIf]; AGroup 15983 1 [sym_kInherited];
     AGroup 15985 1 [sym_kString]; AGroup 18520 1 [sym_kNot]; AGroup 3 2 syms_5;
     AGroup 15963 2 syms_6; AGroup 15967 2 syms_7; AGroup 15969 2 syms_8; AGroup 15971 2 syms_9;
     AGroup 15979 2 syms_11; SGroup 7734 2 syms_12; SGroup 6950 3 syms_13; SGroup 7379 4 syms_14;
     AGroup 15975 5 syms_15; SGroup 7373 14 syms_17]);
   (215066, 20, [AGroup 5 1 [sym_ppDirective]; AGroup 15647 1 [anon_sym_LBRACK];
     AGroup 15653 1 [anon_sym_POUND]; AGroup 15667 1 [sym_kSpecialize];
     AGroup 15673 1 [sym_kInherited]; AGroup 15675 1 [sym_kString];
     AGroup 15745 1 [anon_sym_LPAREN]; AGroup 15755 1 [sym_kIf]; AGroup 3 2 syms_5;
     AGroup 15651 2 syms_6; AGroup 15655 2 syms_7; AGroup 15657 2 syms_8; AGroup 15669 2 syms_11;
     AGroup 15747 2 syms_9; AGroup 15749 2 syms_10; SGroup 8129 2 syms_12; SGroup 7100 3 syms_13;
     SGroup 9891 4 syms_14; AGroup 15751 5 syms_15; SGroup 8464 14 syms_17]);
   (215157, 20, [AGroup 5 1 [sym_ppDirective]; AGroup 15959 1 [anon_sym_LBRACK];
     AGroup 15961 1 [anon_sym_LPAREN]; AGroup 15965 1 [anon_sym_POUND];
     AGroup 15977 1 [sym_kSpecialize]; AGroup 15981 1 [sym_kIf]; AGroup 15983 1 [sym_kInherited];
     AGroup 15985 1 [sym_kString]; AGroup 3 2 syms_5; AGroup 15963 2 syms_6;
     AGroup 15967 2 syms_7; AGroup 15969 2 syms_8; AGroup 15971 2 syms_9; AGroup 15973 2 syms_10;
     AGroup 15979 2 syms_11; SGroup 7734 2 syms_12; SGroup 6950 3 syms_13; SGroup 7382 4 syms_14;
     AGroup 15975 5 syms_15; SGroup 7373 14 syms_17]);
   (215248, 20, [AGroup 5 1 [sym_ppDirective]; AGroup 15677 1 [anon_sym_LBRACK];
     AGroup 15679 1 [anon_sym_LPAREN]; AGroup 15683 1 [anon_sym_POUND];
     AGroup 15697 1 [sym_kSpecialize]; AGroup 15701 1 [sym_kIf]; AGroup 15703 1 [sym_kInherited];
     AGroup 17206 1 [sym_kString]; AGroup 3 2 syms_5; AGroup 15681 2 syms_6;
     AGroup 15685 2 syms_7; AGroup 15687 2 syms_8; AGroup 15689 2 syms_9; AGroup 15691 2 syms_10;
     AGroup 15699 2 syms_11; SGroup 8792 2 syms_12; SGroup 7321 3 syms_13; SGroup 8474 4 syms_14;
     AGroup 15693 5 syms_15; SGroup 8443 14 syms_17]);
   (215339, 20, [AGroup 5 1 [sym_ppDirective]; AGroup 15761 1 [anon_sym_LBRACK];
     AGroup 15763 1 [anon_sym_LPAREN]; AGroup 15767 1 [anon_sym_POUND];
     AGroup 15781 1 [sym_kSpecialize]; AGroup 15787 1 [sym_kInherited]; AGroup 16229 1 [sym_kIf];
     AGroup 17864 1 [sym_kString]; AGroup 3 2 syms_5; AGroup 15765 2 syms_6;
     AGroup 15769 2 syms_7; AGroup 15771 2 syms_8; AGroup 15783 2 syms_11; AGroup 16221 2 syms_9;
     AGroup 16223 2 syms_10; SGroup 9180 2 syms_12; SGroup 7467 3 syms_13; SGroup 9906 4 syms_14;
     AGroup 16225 5 syms_15; SGroup 9076 14 syms_17]);
   (215430, 20, [AGroup 5 1 [sym_ppDirective]; AGroup 15761 1 [anon_sym_LBRACK];
     AGroup 15763 1 [anon_sym_LPAREN]; AGroup 15767 1 [anon_sym_POUND];
     AGroup 15781 1 [sym_kSpecialize]; AGroup 15787 1 [sym_kInherited]; AGroup 16229 1 [sym_kIf];
     AGroup 17864 1 [sym_kString]; AGroup 3 2 syms_5; AGroup 15765 2 syms_6;
     AGroup 15769 2 syms_7; AGroup 15771 2 syms_8; AGroup 15783 2 syms_11; AGroup 16221 2 syms_9;
     AGroup 16223 2 syms_10; SGroup 9180 2 syms_12; SGroup 7467 3 syms_13; SGroup 9908 4 syms_14;
     AGroup 16225 5 syms_15; SGroup 9076 14 syms_17]);
   (215521, 20, [AGroup 5 1 [sym_ppDirective]; AGroup 16715 1 [anon_sym_LBRACK];
     AGroup 16717 1 [anon_sym_LPAREN]; AGroup 16721 1 [anon_sym_POUND];
     AGroup 16735 1 [sym_kSpecialize]; AGroup 16739 1 [sym_kIf]; AGroup 16741 1 [sym_kInherited];
     AGroup 18201 1 [sym_kString]; AGroup 3 2 syms_5; AGroup 16719 2 syms_6;
     AGroup 16723 2 syms_7; AGroup 16725 2 syms_8; AGroup 16727 2 syms_9; AGroup 16729 2 syms_10;
     AGroup 16737 2 syms_11; SGroup 7901 2 syms_12; SGroup 7014 3 syms_13; SGroup 8179 4 syms_14;
     AGroup 16731 5 syms_15; SGroup 7757 14 syms_17]);
   (215612, 20, [AGroup 5 1 [sym_ppDirective]; AGroup 15831 1 [anon_sym_LBRACK];
     AGroup 15833 1 [anon_sym_LPAREN]; AGroup 15837 1 [anon_sym_POUND];
     AGroup 15851 1 [sym_kSpecialize]; AGroup 15855 1 [sym_kIf]; AGroup 15857 1 [sym_kInherited];
     AGroup 17312 1 [sym_kString]; AGroup 3 2 syms_5; AGroup 15835 2 syms_6;
     AGroup 15839 2 syms_7; AGroup 15841 2 syms_8; AGroup 15843 2 syms_9; AGroup 15845 2 syms_10;
     AGroup 15853 2 syms_11; SGroup 9267 2 syms_12; SGroup 7556 3 syms_13; SGroup 9872 4 syms_14;
     AGroup 15847 5 syms_15; SGroup 8649 14 syms_17]);
   (215703, 20, [AGroup 5 1 [sym_ppDirective]; AGroup 15987 1 [anon_sym_LBRACK];
     AGroup 15989 1 [anon_sym_LPAREN]; AGroup 15993 1 [anon_sym_POUND];
     AGroup 16007 1 [sym_kSpecialize]; AGroup 16011 1 [sym_kIf]; AGroup 16013 1 [sym_kInherited];
     AGroup 18254 1 [sym_kString]; AGroup 3 2 syms_5; AGroup 15991 2 syms_6;
     AGroup 15995 2 syms_7; AGroup 15997 2 syms_8; AGroup 15999 2 syms_9; AGroup 16001 2 syms_10;
     AGroup 16009 2 syms_11; SGroup 9525 2 syms_12; SGroup 7769 3 syms_13; SGroup 9924 4 syms_14;
     AGroup 16003 5 syms_15; SGroup 9072 14 syms_17]);
   (215794, 20, [AGroup 5 1 [sym_ppDirective]; AGroup 15761 1 [anon_sym_LBRACK];
     AGroup 15763 1 [anon_sym_LPAREN]; AGroup 15767 1 [anon_sym_POUND];
     AGroup 15781 1 [sym_kSpecialize]; AGroup 15787 1 [sym_kInherited]; AGroup 16229 1 [sym_kIf];
     AGroup 17864 1 [sym_kString]; AGroup 3 2 syms_5; AGroup 15765 2 syms_6;
     AGroup 15769 2 syms_7; AGroup 15771 2 syms_8; AGroup 15783 2 syms_11; AGroup 16221 2 syms_9;
     AGroup 16223 2 syms_10; SGroup 9180 2 syms_12; SGroup 7467 3 syms_13; SGroup 9929 4 syms_14;
     AGroup 16225 5 syms_15; SGroup 9076 14 syms_17]);
   (215885, 20, [AGroup 5 1 [sym_ppDirective]; AGroup 16191 1 [anon_sym_LBRACK];
     AGroup 16193 1 [anon_sym_LPAREN]; AGroup 16197 1 [anon_sym_POUND];
     AGroup 16211 1 [sym_kSpecialize]; AGroup 16215 1 [sym_kIf]; AGroup 16217 1 [sym_kInherited];
     AGroup 16882 1 [sym_kString]; AGroup 3 2 syms_5; AGroup 16195 2 syms_6;
     AGroup 16199 2 syms_7; AGroup 16201 2 syms_8; AGroup 16203 2 syms_9; AGroup 16205 2 syms_10;
     AGroup 16213 2 syms_11; SGroup 7995 2 syms_12; SGroup 7098 3 syms_13; SGroup 7781 4 syms_14;
     AGroup 16207 5 syms_15; SGroup 7895 14 syms_17]);
   (215976, 20, [AGroup 5 1 [sym_ppDirective]; AGroup 15647 1 [anon_sym_LBRACK];
     AGroup 15653 1 [anon_sym_POUND]; AGroup 15667 1 [sym_kSpecialize];
     AGroup 15673 1 [sym_kInherited]; AGroup 15675 1 [sym_kString];
     AGroup 15745 1 [anon_sym_LPAREN]; AGroup 15755 1 [sym_kIf]; AGroup 3 2 syms_5;
     AGroup 15651 2 syms_6; AGroup 15655 2 syms_7; AGroup 15657 2 syms_8; AGroup 15669 2 syms_11;
     AGroup 15747 2 syms_9; AGroup 15749 2 syms_10; SGroup 8129 2 syms_12; SGroup 7100 3 syms_13;
     SGroup 9933 4 syms_14; AGroup 15751 5 syms_15; SGroup 8464 14 syms_17]);
   (216067, 5, [AGroup 5 1 [sym_ppDirective]; AGroup 3 2 syms_5; AGroup 15492 4 syms_25;
     AGroup 15403 18 syms_36; AGroup 15490 25 syms_154]);
   (216128, 8, [AGroup 5 1 [sym_ppDirective]; AGroup 3 2 syms_5; SGroup 7742 2 syms_12;
     SGroup 6664 3 syms_13; SGroup 7479 4 syms_14; AGroup 18189 5 syms_150;
     SGroup 7478 14 syms_17; AGroup 18187 19 syms_151]);
   (216195, 20, [AGroup 5 1 [sym_ppDirective]; AGroup 15761 1 [anon_sym_LBRACK];
     AGroup 15763 1 [anon_sym_LPAREN]; AGroup 15767 1 [anon_sym_POUND];
     AGroup 15781 1 [sym_kSpecialize]; AGroup 15787 1 [sym_kInherited]; AGroup 16229 1 [sym_kIf];
     AGroup 17864 1 [sym_kString]; AGroup 3 2 syms_5; AGroup 15765 2 syms_6;
     AGroup 15769 2 syms_7; AGroup 15771 2 syms_8; AGroup 15783 2 syms_11; AGroup 16221 2 syms_9;
     AGroup 16223 2 syms_10; SGroup 9180 2 syms_12; SGroup 7467 3 syms_13; SGroup 9943 4 syms_14;
     AGroup 16225 5 syms_15; SGroup 9076 14 syms_17]);
   (216286, 20, [AGroup 5 1 [sym_ppDirective]; AGroup 15761 1 [anon_sym_LBRACK];
     AGroup 15763 1 [anon_sym_LPAREN]; AGroup 15767 1 [anon_sym_POUND];
     AGroup 15781 1 [sym_kSpecialize]; AGroup 15787 1 [sym_kInherited]; AGroup 16229 1 [sym_kIf];
     AGroup 17864 1 [sym_kString]; AGroup 3 2 syms_5; AGroup 15765 2 syms_6;
     AGroup 15769 2 syms_7; AGroup 15771 2 syms_8; AGroup 15783 2 syms_11; AGroup 16221 2 syms_9;
     AGroup 16223 2 syms_10; SGroup 9180 2 syms_12; SGroup 7467 3 syms_13; SGroup 9944 4 syms_14;
     AGroup 16225 5 syms_15; SGroup 9076 14 syms_17]);
   (216377, 20, [AGroup 5 1 [sym_ppDirective]; AGroup 16715 1 [anon_sym_LBRACK];
     AGroup 16717 1 [anon_sym_LPAREN]; AGroup 16721 1 [anon_sym_POUND];
     AGroup 16735 1 [sym_kSpecialize]; AGroup 16739 1 [sym_kIf]; AGroup 16741 1 [sym_kInherited];
     AGroup 18201 1 [sym_kString]; AGroup 3 2 syms_5; AGroup 16719 2 syms_6;
     AGroup 16723 2 syms_7; AGroup 16725 2 syms_8; AGroup 16727 2 syms_9; AGroup 16729 2 syms_10;
     AGroup 16737 2 syms_11; SGroup 7901 2 syms_12; SGroup 7014 3 syms_13; SGroup 8186 4 syms_14;
     AGroup 16731 5 syms_15; SGroup 7757 14 syms_17]);
   (216468, 20, [AGroup 5 1 [sym_ppDirective]; AGroup 15831 1 [anon_sym_LBRACK];
     AGroup 15833 1 [anon_sym_LPAREN]; AGroup 15837 1 [anon_sym_POUND];
     AGroup 15851 1 [sym_kSpecialize]; AGroup 15855 1 [sym_kIf]; AGroup 15857 1 [sym_kInherited];
     AGroup 17312 1 [sym_kString]; AGroup 3 2 syms_5; AGroup 15835 2 syms_6;
     AGroup 15839 2 syms_7; AGroup 15841 2 syms_8; AGroup 15843 2 syms_9; AGroup 15845 2 syms_10;
     AGroup 15853 2 syms_11; SGroup 9267 2 syms_12; SGroup 7556 3 syms_13; SGroup 9913 4 syms_14;
     AGroup 15847 5 syms_15; SGroup 8649 14 syms_17]);
   (216559, 20, [AGroup 5 1 [sym_ppDirective]; AGroup 15987 1 [anon_sym_LBRACK];
     AGroup 15989 1 [anon_sym_LPAREN]; AGroup 15993 1 [anon_sym_POUND];
     AGroup 16007 1 [sym_kSpecialize]; AGroup 16011 1 [sym_kIf]; AGroup 16013 1 [sym_kInherited];
     AGroup 18254 1 [sym_kString]; AGroup 3 2 syms_5; AGroup 15991 2 syms_6;
     AGroup 15995 2 syms_7; AGroup 15997 2 syms_8; AGroup 15999 2 syms_9; AGroup 16001 2 syms_10;
     AGroup 16009 2 syms_11; SGroup 9525 2 syms_12; SGroup 7769 3 syms_13; SGroup 9960 4 syms_14;
     AGroup 16003 5 syms_15; SGroup 9072 14 syms_17]);
   (216650, 20, [AGroup 5 1 [sym_ppDirective]; AGroup 15761 1 [anon_sym_LBRACK];
     AGroup 15763 1 [anon_sym_LPAREN]; AGroup 15767 1 [anon_sym_POUND];
     AGroup 15781 1 [sym_kSpecialize]; AGroup 15787 1 [sym_kInherited]; AGroup 16229 1 [sym_kIf];
     AGroup 17864 1 [sym_kString]; AGroup 3 2 syms_5; AGroup 15765 2 syms_6;
     AGroup 15769 2 syms_7; AGroup 15771 2 syms_8; AGroup 15783 2 syms_11; AGroup 16221 2 syms_9;
     AGroup 16223 2 syms_10; SGroup 9180 2 syms_12; SGroup 7467 3 syms_13; SGroup 9967 4 syms_14;
     AGroup 16225 5 syms_15; SGroup 9076 14 syms_17]);
   (216741, 20, [AGroup 5 1 [sym_ppDirective]; AGroup 15755 1 [sym_kIf]; AGroup 15959 1 [anon_sym_LBRACK];
     AGroup 15961 1 [anon_sym_LPAREN]; AGroup 15965 1 [anon_sym_POUND];
     AGroup 15977 1 [sym_kSpecialize]; AGroup 15983 1 [sym_kInherited];
     AGroup 15985 1 [sym_kString]; AGroup 3 2 syms_5; AGroup 15747 2 syms_9;
     AGroup 15749 2 syms_10; AGroup 15963 2 syms_6; AGroup 15967 2 syms_7; AGroup 15969 2 syms_8;
     AGroup 15979 2 syms_11; SGroup 7734 2 syms_12; SGroup 6950 3 syms_13;
     SGroup 10341 4 syms_14; AGroup 18522 5 syms_15; SGroup 7386 14 syms_17]);
   (216832, 20, [AGroup 5 1 [sym_ppDirective]; AGroup 15647 1 [anon_sym_LBRACK];
     AGroup 15653 1 [anon_sym_POUND]; AGroup 15667 1 [sym_kSpecialize];
     AGroup 15673 1 [sym_kInherited]; AGroup 15675 1 [sym_kString];
     AGroup 15745 1 [anon_sym_LPAREN]; AGroup 15755 1 [sym_kIf]; AGroup 3 2 syms_5;
     AGroup 15651 2 syms_6; AGroup 15655 2 syms_7; AGroup 15657 2 syms_8; AGroup 15669 2 syms_11;
     AGroup 15747 2 syms_9; AGroup 15749 2 syms_10; SGroup 8129 2 syms_12; SGroup 7100 3 syms_13;
     SGroup 9975 4 syms_14; AGroup 15751 5 syms_15; SGroup 8464 14 syms_17]);
   (216923, 5, [AGroup 5 1 [sym_ppDirective]; AGroup 3 2 syms_5; AGroup 15504 4 syms_25;
     AGroup 15403 18 syms_36; AGroup 15502 25 syms_154]);
   (216984, 20, [AGroup 5 1 [sym_ppDirective]; AGroup 15677 1 [anon_sym_LBRACK];
     AGroup 15679 1 [anon_sym_LPAREN]; AGroup 15683 1 [anon_sym_POUND];
     AGroup 15697 1 [sym_kSpecialize]; AGroup 15701 1 [sym_kIf]; AGroup 15703 1 [sym_kInherited];
     AGroup 17206 1 [sym_kString]; AGroup 3 2 syms_5; AGroup 15681 2 syms_6;
     AGroup 15685 2 syms_7; AGroup 15687 2 syms_8; AGroup 15689 2 syms_9; AGroup 15691 2 syms_10;
     AGroup 15699 2 syms_11; SGroup 8792 2 syms_12; SGroup 7321 3 syms_13; SGroup 8478 4 syms_14;
     AGroup 15693 5 syms_15; SGroup 8443 14 syms_17]);
   (217075, 20, [AGroup 5 1 [sym_ppDirective]; AGroup 15761 1 [anon_sym_LBRACK];
     AGroup 15763 1 [anon_sym_LPAREN]; AGroup 15767 1 [anon_sym_POUND];
     AGroup 15781 1 [sym_kSpecialize]; AGroup 15787 1 [sym_kInherited]; AGroup 16229 1 [sym_kIf];
     AGroup 17864 1 [sym_kString]; AGroup 3 2 syms_5; AGroup 15765 2 syms_6;
     AGroup 15769 2 syms_7; AGroup 15771 2 syms_8; AGroup 15783 2 syms_11; AGroup 16221 2 syms_9;
     AGroup 16223 2 syms_10; SGroup 9180 2 syms_12; SGroup 7467 3 syms_13; SGroup 9983 4 syms_14;
     AGroup 16225 5 syms_15; SGroup 9076 14 syms_17]);
   (217166, 20, [AGroup 5 1 [sym_ppDirective]; AGroup 15761 1 [anon_sym_LBRACK];
     AGroup 15763 1 [anon_sym_LPAREN]; AGroup 15767 1 [anon_sym_POUND];
     AGroup 15781 1 [sym_kSpecialize]; AGroup 15787 1 [sym_kInherited]; AGroup 16229 1 [sym_kIf];
     AGroup 17864 1 [sym_kString]; AGroup 3 2 syms_5; AGroup 15765 2 syms_6;
     AGroup 15769 2 syms_7; AGroup 15771 2 syms_8; AGroup 15783 2 syms_11; AGroup 16221 2 syms_9;
     AGroup 16223 2 syms_10; SGroup 9180 2 syms_12; SGroup 7467 3 syms_13; SGroup 9984 4 syms_14;
     AGroup 16225 5 syms_15; SGroup 9076 14 syms_17]);
   (217257, 20, [AGroup 5 1 [sym_ppDirective]; AGroup 16715 1 [anon_sym_LBRACK];
     AGroup 16717 1 [anon_sym_LPAREN]; AGroup 16721 1 [anon_sym_POUND];
     AGroup 16735 1 [sym_kSpecialize]; AGroup 16739 1 [sym_kIf]; AGroup 16741 1 [sym_kInherited];
     AGroup 18201 1 [sym_kString]; AGroup 3 2 syms_5; AGroup 16719 2 syms_6;
     AGroup 16723 2 syms_7; AGroup 16725 2 syms_8; AGroup 16727 2 syms_9; AGroup 16729 2 syms_10;
     AGroup 16737 2 syms_11; SGroup 7901 2 syms_12; SGroup 7014 3 syms_13; SGroup 8189 4 syms_14;
     AGroup 16731 5 syms_15; SGroup 7757 14 syms_17]);
   (217348, 20, [AGroup 5 1 [sym_ppDirective]; AGroup 15831 1 [anon_sym_LBRACK];
     AGroup 15833 1 [anon_sym_LPAREN]; AGroup 15837 1 [anon_sym_POUND];
     AGroup 15851 1 [sym_kSpecialize]; AGroup 15855 1 [sym_kIf]; AGroup 15857 1 [sym_kInherited];
     AGroup 17312 1 [sym_kString]; AGroup 3 2 syms_5; AGroup 15835 2 syms_6;
     AGroup 15839 2 syms_7; AGroup 15841 2 syms_8; AGroup 15843 2 syms_9; AGroup 15845 2 syms_10;
     AGroup 15853 2 syms_11; SGroup 9267 2 syms_12; SGroup 7556 3 syms_13; SGroup 9946 4 syms_14;
     AGroup 15847 5 syms_15; SGroup 8649 14 syms_17]);
   (217439, 20, [AGroup 5 1 [sym_ppDirective]; AGroup 15987 1 [anon_sym_LBRACK];
     AGroup 15989 1 [anon_sym_LPAREN]; AGroup 15993 1 [anon_sym_POUND];
     AGroup 16007 1 [sym_kSpecialize]; AGroup 16011 1 [sym_kIf]; AGroup 16013 1 [sym_kInherited];
     AGroup 18254 1 [sym_kString]; AGroup 3 2 syms_5; AGroup 15991 2 syms_6;
     AGroup 15995 2 syms_7; AGroup 15997 2 syms_8; AGroup 15999 2 syms_9; AGroup 16001 2 syms_10;
     AGroup 16009 2 syms_11; SGroup 9525 2 syms_12; SGroup 7769 3 syms_13; SGroup 9996 4 syms_14;
     AGroup 16003 5 syms_15; SGroup 9072 14 syms_17]);
   (217530, 20, [AGroup 5 1 [sym_ppDirective]; AGroup 15761 1 [anon_sym_LBRACK];
     AGroup 15763 1 [anon_sym_LPAREN]; AGroup 15767 1 [anon_sym_POUND];
     AGroup 15781 1 [sym_kSpecialize]; AGroup 15787 1 [sym_kInherited]; AGroup 16229 1 [sym_kIf];
     AGroup 17864 1 [sym_kString]; AGroup 3 2 syms_5; AGroup 15765 2 syms_6;
     AGroup 15769 2 syms_7; AGroup 15771 2 syms_8; AGroup 15783 2 syms_11; AGroup 16221 2 syms_9;
     AGroup 16223 2 syms_10; SGroup 9180 2 syms_12; SGroup 7467 3 syms_13; SGroup 9997 4 syms_14;
     AGroup 16225 5 syms_15; SGroup 9076 14 syms_17]);
   (217621, 4, [AGroup 18524 1 [sym_identifier]; SGroup 5525 1 [aux_sym_declVar_repeat1]; AGroup 3 3 syms_1;
     AGroup 18526 45 syms_162]);
   (217680, 20, [AGroup 5 1 [sym_ppDirective]; AGroup 15647 1 [anon_sym_LBRACK];
     AGroup 15653 1 [anon_sym_POUND]; AGroup 15667 1 [sym_kSpecialize];
     AGroup 15673 1 [sym_kInherited]; AGroup 15675 1 [sym_kString];
     AGroup 15745 1 [anon_sym_LPAREN]; AGroup 15755 1 [sym_kIf]; AGroup 3 2 syms_5;
     AGroup 15651 2 syms_6; AGroup 15655 2 syms_7; AGroup 15657 2 syms_8; AGroup 15669 2 syms_11;
     AGroup 15747 2 syms_9; AGroup 15749 2 syms_10; SGroup 8129 2 syms_12; SGroup 7100 3 syms_13;
     SGroup 10004 4 syms_14; AGroup 15751 5 syms_15; SGroup 8464 14 syms_17]);
   (217771, 20, [AGroup 5 1 [sym_ppDirective]; AGroup 14735 1 [anon_sym_LBRACK];
     AGroup 14737 1 [anon_sym_LPAREN]; AGroup 14741 1 [anon_sym_POUND];
     AGroup 14755 1 [sym_kSpecialize]; AGroup 14759 1 [sym_kIf]; AGroup 14761 1 [sym_kInherited];
     AGroup 14763 1 [sym_kString]; AGroup 3 2 syms_5; AGroup 14739 2 syms_6;
     AGroup 14743 2 syms_7; AGroup 14745 2 syms_8; AGroup 14749 2 syms_9; AGroup 14751 2 syms_10;
     AGroup 14757 2 syms_11; SGroup 3618 2 syms_12; SGroup 2833 3 syms_13; SGroup 3464 4 syms_14;
     AGroup 14753 5 syms_15; SGroup 3466 14 syms_17]);
   (217862, 20, [AGroup 5 1 [sym_ppDirective]; AGroup 7968 1 [anon_sym_LBRACK];
     AGroup 7970 1 [anon_sym_LPAREN]; AGroup 7974 1 [anon_sym_POUND];
     AGroup 7990 1 [sym_kSpecialize]; AGroup 8010 1 [sym_kInherited];
     AGroup 8016 1 [sym_kString]; AGroup 15071 1 [sym_kIf]; AGroup 3 2 syms_5;
     AGroup 7972 2 syms_6; AGroup 7976 2 syms_7; AGroup 7978 2 syms_8; AGroup 7980 2 syms_9;
     AGroup 7982 2 syms_10; AGroup 8004 2 syms_11; SGroup 7299 2 syms_12; SGroup 6388 3 syms_13;
     SGroup 7133 4 syms_14; AGroup 7984 5 syms_15; SGroup 7138 14 syms_17]);
   (217953, 5, [AGroup 5 1 [sym_ppDirective]; AGroup 3 2 syms_5; AGroup 15484 4 syms_25;
     AGroup 15403 18 syms_36; AGroup 15482 25 syms_154]);
   (218014, 20, [AGroup 5 1 [sym_ppDirective]; AGroup 15761 1 [anon_sym_LBRACK];
     AGroup 15763 1 [anon_sym_LPAREN]; AGroup 15767 1 [anon_sym_POUND];
     AGroup 15781 1 [sym_kSpecialize]; AGroup 15787 1 [sym_kInherited]; AGroup 16229 1 [sym_kIf];
     AGroup 17864 1 [sym_kString]; AGroup 3 2 syms_5; AGroup 15765 2 syms_6;
     AGroup 15769 2 syms_7; AGroup 15771 2 syms_8; AGroup 15783 2 syms_11; AGroup 16221 2 syms_9;
     AGroup 16223 2 syms_10; SGroup 9180 2 syms_12; SGroup 7467 3 syms_13;
     SGroup 10010 4 syms_14; AGroup 16225 5 syms_15; SGroup 9076 14 syms_17]);
   (218105, 20, [AGroup 5 1 [sym_ppDirective]; AGroup 15761 1 [anon_sym_LBRACK];
     AGroup 15763 1 [anon_sym_LPAREN]; AGroup 15767 1 [anon_sym_POUND];
     AGroup 15781 1 [sym_kSpecialize]; AGroup 15787 1 [sym_kInherited]; AGroup 16229 1 [sym_kIf];
     AGroup 17864 1 [sym_kString]; AGroup 3 2 syms_5; AGroup 15765 2 syms_6;
     AGroup 15769 2 syms_7; AGroup 15771 2 syms_8; AGroup 15783 2 syms_11; AGroup 16221 2 syms_9;
     AGroup 16223 2 syms_10; SGroup 9180 2 syms_12; SGroup 7467 3 syms_13;
     SGroup 10012 4 syms_14; AGroup 16225 5 syms_15; SGroup 9076 14 syms_17]);
   (218196, 20, [AGroup 5 1 [sym_ppDirective]; AGroup 16715 1 [anon_sym_LBRACK];
     AGroup 16717 1 [anon_sym_LPAREN]; AGroup 16721 1 [anon_sym_POUND];
     AGroup 16735 1 [sym_kSpecialize]; AGroup 16739 1 [sym_kIf]; AGroup 16741 1 [sym_kInherited];
     AGroup 18201 1 [sym_kString]; AGroup 3 2 syms_5; AGroup 16719 2 syms_6;
     AGroup 16723 2 syms_7; AGroup 16725 2 syms_8; AGroup 16727 2 syms_9; AGroup 16729 2 syms_10;
     AGroup 16737 2 syms_11; SGroup 7901 2 syms_12; SGroup 7014 3 syms_13; SGroup 8191 4 syms_14;
     AGroup 16731 5 syms_15; SGroup 7757 14 syms_17]);
   (218287, 20, [AGroup 5 1 [sym_ppDirective]; AGroup 15831 1 [anon_sym_LBRACK];
     AGroup 15833 1 [anon_sym_LPAREN]; AGroup 15837 1 [anon_sym_POUND];
     AGroup 15851 1 [sym_kSpecialize]; AGroup 15855 1 [sym_kIf]; AGroup 15857 1 [sym_kInherited];
     AGroup 17312 1 [sym_kString]; AGroup 3 2 syms_5; AGroup 15835 2 syms_6;
     AGroup 15839 2 syms_7; AGroup 15841 2 syms_8; AGroup 15843 2 syms_9; AGroup 15845 2 syms_10;
     AGroup 15853 2 syms_11; SGroup 9267 2 syms_12; SGroup 7556 3 syms_13; SGroup 9985 4 syms_14;
     AGroup 15847 5 syms_15; SGroup 8649 14 syms_17]);
   (218378, 20, [AGroup 5 1 [sym_ppDirective]; AGroup 15987 1 [anon_sym_LBRACK];
     AGroup 15989 1 [anon_sym_LPAREN]; AGroup 15993 1 [anon_sym_POUND];
     AGroup 16007 1 [sym_kSpecialize]; AGroup 16011 1 [sym_kIf]; AGroup 16013 1 [sym_kInherited];
     AGroup 18254 1 [sym_kString]; AGroup 3 2 syms_5; AGroup 15991 2 syms_6;
     AGroup 15995 2 syms_7; AGroup 15997 2 syms_8; AGroup 15999 2 syms_9; AGroup 16001 2 syms_10;
     AGroup 16009 2 syms_11; SGroup 9525 2 syms_12; SGroup 7769 3 syms_13;
     SGroup 10024 4 syms_14; AGroup 16003 5 syms_15; SGroup 9072 14 syms_17]);
   (218469, 20, [AGroup 5 1 [sym_ppDirective]; AGroup 15647 1 [anon_sym_LBRACK];
     AGroup 15653 1 [anon_sym_POUND]; AGroup 15667 1 [sym_kSpecialize];
     AGroup 15673 1 [sym_kInherited]; AGroup 15675 1 [sym_kString];
     AGroup 15745 1 [anon_sym_LPAREN]; AGroup 15755 1 [sym_kIf]; AGroup 3 2 syms_5;
     AGroup 15651 2 syms_6; AGroup 15655 2 syms_7; AGroup 15657 2 syms_8; AGroup 15669 2 syms_11;
     AGroup 15747 2 syms_9; AGroup 15749 2 syms_10; SGroup 8129 2 syms_12; SGroup 7100 3 syms_13;
     SGroup 9580 4 syms_14; AGroup 15751 5 syms_15; SGroup 8464 14 syms_17]);
   (218560, 20, [AGroup 5 1 [sym_ppDirective]; AGroup 15761 1 [anon_sym_LBRACK];
     AGroup 15763 1 [anon_sym_LPAREN]; AGroup 15767 1 [anon_sym_POUND];
     AGroup 15781 1 [sym_kSpecialize]; AGroup 15787 1 [sym_kInherited]; AGroup 16229 1 [sym_kIf];
     AGroup 17864 1 [sym_kString]; AGroup 3 2 syms_5; AGroup 15765 2 syms_6;
     AGroup 15769 2 syms_7; AGroup 15771 2 syms_8; AGroup 15783 2 syms_11; AGroup 16221 2 syms_9;
     AGroup 16223 2 syms_10; SGroup 9180 2 syms_12; SGroup 7467 3 syms_13;
     SGroup 10030 4 syms_14; AGroup 16225 5 syms_15; SGroup 9076 14 syms_17]);
   (218651, 4, [AGroup 18528 1 [sym_identifier]; SGroup 5140 1 [aux_sym_declVar_repeat1]; AGroup 3 3 syms_1;
     AGroup 18531 45 syms_162]);
   (218710, 20, [AGroup 5 1 [sym_ppDirective]; AGroup 15647 1 [anon_sym_LBRACK];
     AGroup 15653 1 [anon_sym_POUND]; AGroup 15667 1 [sym_kSpecialize];
     AGroup 15673 1 [sym_kInherited]; AGroup 15675 1 [sym_kString];
     AGroup 15745 1 [anon_sym_LPAREN]; AGroup 15755 1 [sym_kIf]; AGroup 3 2 syms_5;
     AGroup 15651 2 syms_6; AGroup 15655 2 syms_7; AGroup 15657 2 syms_8; AGroup 15669 2 syms_11;
     AGroup 15747 2 syms_9; AGroup 15749 2 syms_10; SGroup 8129 2 syms_12; SGroup 7100 3 syms_13;
     SGroup 10033 4 syms_14; AGroup 15751 5 syms_15; SGroup 8464 14 syms_17]);
   (218801, 5, [AGroup 5 1 [sym_ppDirective]; AGroup 3 2 syms_5; AGroup 15401 4 syms_25;
     AGroup 15403 18 syms_36; AGroup 15399 25 syms_154]);
   (218862, 20, [AGroup 5 1 [sym_ppDirective]; AGroup 7968 1 [anon_sym_LBRACK];
     AGroup 7970 1 [anon_sym_LPAREN]; AGroup 7974 1 [anon_sym_POUND];
     AGroup 7990 1 [sym_kSpecialize]; AGroup 8010 1 [sym_kInherited];
     AGroup 8016 1 [sym_kString]; AGroup 15071 1 [sym_kIf]; AGroup 3 2 syms_5;
     AGroup 7972 2 syms_6; AGroup 7976 2 syms_7; AGroup 7978 2 syms_8; AGroup 7980 2 syms_9;
     AGroup 7982 2 syms_10; AGroup 8004 2 syms_11; SGroup 7299 2 syms_12; SGroup 6388 3 syms_13;
     SGroup 7140 4 syms_14; AGroup 7984 5 syms_15; SGroup 7138 14 syms_17]);
   (218953, 20, [AGroup 5 1 [sym_ppDirective]; AGroup 15761 1 [anon_sym_LBRACK];
     AGroup 15763 1 [anon_sym_LPAREN]; AGroup 15767 1 [anon_sym_POUND];
     AGroup 15781 1 [sym_kSpecialize]; AGroup 15787 1 [sym_kInherited]; AGroup 16229 1 [sym_kIf];
     AGroup 17864 1 [sym_kString]; AGroup 3 2 syms_5; AGroup 15765 2 syms_6;
     AGroup 15769 2 syms_7; AGroup 15771 2 syms_8; AGroup 15783 2 syms_11; AGroup 16221 2 syms_9;
     AGroup 16223 2 syms_10; SGroup 9180 2 syms_12; SGroup 7467 3 syms_13;
     SGroup 10038 4 syms_14; AGroup 16225 5 syms_15; SGroup 9076 14 syms_17]);
   (219044, 20, [AGroup 5 1 [sym_ppDirective]; AGroup 15761 1 [anon_sym_LBRACK];
     AGroup 15763 1 [anon_sym_LPAREN]; AGroup 15767 1 [anon_sym_POUND];
     AGroup 15781 1 [sym_kSpecialize]; AGroup 15787 1 [sym_kInherited]; AGroup 16229 1 [sym_kIf];
     AGroup 17864 1 [sym_kString]; AGroup 3 2 syms_5; AGroup 15765 2 syms_6;
     AGroup 15769 2 syms_7; AGroup 15771 2 syms_8; AGroup 15783 2 syms_11; AGroup 16221 2 syms_9;
     AGroup 16223 2 syms_10; SGroup 9180 2 syms_12; SGroup 7467 3 syms_13;
     SGroup 10039 4 syms_14; AGroup 16225 5 syms_15; SGroup 9076 14 syms_17]);
   (219135, 20, [AGroup 5 1 [sym_ppDirective]; AGroup 16715 1 [anon_sym_LBRACK];
     AGroup 16717 1 [anon_sym_LPAREN]; AGroup 16721 1 [anon_sym_POUND];
     AGroup 16735 1 [sym_kSpecialize]; AGroup 16739 1 [sym_kIf]; AGroup 16741 1 [sym_kInherited];
     AGroup 18201 1 [sym_kString]; AGroup 3 2 syms_5; AGroup 16719 2 syms_6;
     AGroup 16723 2 syms_7; AGroup 16725 2 syms_8; AGroup 16727 2 syms_9; AGroup 16729 2 syms_10;
     AGroup 16737 2 syms_11; SGroup 7901 2 syms_12; SGroup 7014 3 syms_13; SGroup 8193 4 syms_14;
     AGroup 16731 5 syms_15; SGroup 7757 14 syms_17]);
   (219226, 20, [AGroup 5 1 [sym_ppDirective]; AGroup 15831 1 [anon_sym_LBRACK];
     AGroup 15833 1 [anon_sym_LPAREN]; AGroup 15837 1 [anon_sym_POUND];
     AGroup 15851 1 [sym_kSpecialize]; AGroup 15855 1 [sym_kIf]; AGroup 15857 1 [sym_kInherited];
     AGroup 17312 1 [sym_kString]; AGroup 3 2 syms_5; AGroup 15835 2 syms_6;
     AGroup 15839 2 syms_7; AGroup 15841 2 syms_8; AGroup 15843 2 syms_9; AGroup 15845 2 syms_10;
     AGroup 15853 2 syms_11; SGroup 9267 2 syms_12; SGroup 7556 3 syms_13;
     SGroup 10016 4 syms_14; AGroup 15847 5 syms_15; SGroup 8649 14 syms_17]);
   (219317, 20, [AGroup 5 1 [sym_ppDirective]; AGroup 15987 1 [anon_sym_LBRACK];
     AGroup 15989 1 [anon_sym_LPAREN]; AGroup 15993 1 [anon_sym_POUND];
     AGroup 16007 1 [sym_kSpecialize]; AGroup 16011 1 [sym_kIf]; AGroup 16013 1 [sym_kInherited];
     AGroup 18254 1 [sym_kString]; AGroup 3 2 syms_5; AGroup 15991 2 syms_6;
     AGroup 15995 2 syms_7; AGroup 15997 2 syms_8; AGroup 15999 2 syms_9; AGroup 16001 2 syms_10;
     AGroup 16009 2 syms_11; SGroup 9525 2 syms_12; SGroup 7769 3 syms_13;
     SGroup 10048 4 syms_14; AGroup 16003 5 syms_15; SGroup 9072 14 syms_17]);
   (219408, 20, [AGroup 5 1 [sym_ppDirective]; AGroup 7968 1 [anon_sym_LBRACK];
     AGroup 7970 1 [anon_sym_LPAREN]; AGroup 7974 1 [anon_sym_POUND];
     AGroup 7990 1 [sym_kSpecialize]; AGroup 8010 1 [sym_kInherited];
     AGroup 8016 1 [sym_kString]; AGroup 15071 1 [sym_kIf]; AGroup 3 2 syms_5;
     AGroup 7972 2 syms_6; AGroup 7976 2 syms_7; AGroup 7978 2 syms_8; AGroup 7980 2 syms_9;
     AGroup 7982 2 syms_10; AGroup 8004 2 syms_11; SGroup 7299 2 syms_12; SGroup 6388 3 syms_13;
     SGroup 7141 4 syms_14; AGroup 7984 5 syms_15; SGroup 7138 14 syms_17]);
   (219499, 20, [AGroup 5 1 [sym_ppDirective]; AGroup 7968 1 [anon_sym_LBRACK];
     AGroup 7970 1 [anon_sym_LPAREN]; AGroup 7974 1 [anon_sym_POUND];
     AGroup 7990 1 [sym_kSpecialize]; AGroup 8010 1 [sym_kInherited];
     AGroup 8016 1 [sym_kString]; AGroup 15071 1 [sym_kIf]; AGroup 3 2 syms_5;
     AGroup 7972 2 syms_6; AGroup 7976 2 syms_7; AGroup 7978 2 syms_8; AGroup 7980 2 syms_9;
     AGroup 7982 2 syms_10; AGroup 8004 2 syms_11; SGroup 7299 2 syms_12; SGroup 6388 3 syms_13;
     SGroup 7142 4 syms_14; AGroup 7984 5 syms_15; SGroup 7138 14 syms_17]);
   (219590, 20, [AGroup 5 1 [sym_ppDirective]; AGroup 15761 1 [anon_sym_LBRACK];
     AGroup 15763 1 [anon_sym_LPAREN]; AGroup 15767 1 [anon_sym_POUND];
     AGroup 15781 1 [sym_kSpecialize]; AGroup 15787 1 [sym_kInherited]; AGroup 16229 1 [sym_kIf];
     AGroup 17864 1 [sym_kString]; AGroup 3 2 syms_5; AGroup 15765 2 syms_6;
     AGroup 15769 2 syms_7; AGroup 15771 2 syms_8; AGroup 15783 2 syms_11; AGroup 16221 2 syms_9;
     AGroup 16223 2 syms_10; SGroup 9180 2 syms_12; SGroup 7467 3 syms_13;
     SGroup 10050 4 syms_14; AGroup 16225 5 syms_15; SGroup 9076 14 syms_17]);
   (219681, 20, [AGroup 5 1 [sym_ppDirective]; AGroup 15647 1 [anon_sym_LBRACK];
     AGroup 15653 1 [anon_sym_POUND]; AGroup 15667 1 [sym_kSpecialize];
     AGroup 15673 1 [sym_kInherited]; AGroup 15675 1 [sym_kString];
     AGroup 15745 1 [anon_sym_LPAREN]; AGroup 15755 1 [sym_kIf]; AGroup 3 2 syms_5;
     AGroup 15651 2 syms_6; AGroup 15655 2 syms_7; AGroup 15657 2 syms_8; AGroup 15669 2 syms_11;
     AGroup 15747 2 syms_9; AGroup 15749 2 syms_10; SGroup 8129 2 syms_12; SGroup 7100 3 syms_13;
     SGroup 10054 4 syms_14; AGroup 15751 5 syms_15; SGroup 8464 14 syms_17]);
   (219772, 20, [AGroup 5 1 [sym_ppDirective]; AGroup 14735 1 [anon_sym_LBRACK];
     AGroup 14737 1 [anon_sym_LPAREN]; AGroup 14741 1 [anon_sym_POUND];
     AGroup 14755 1 [sym_kSpecialize]; AGroup 14759 1 [sym_kIf]; AGroup 14761 1 [sym_kInherited];
     AGroup 14763 1 [sym_kString]; AGroup 3 2 syms_5; AGroup 14739 2 syms_6;
     AGroup 14743 2 syms_7; AGroup 14745 2 syms_8; AGroup 14749 2 syms_9; AGroup 14751 2 syms_10;
     AGroup 14757 2 syms_11; SGroup 3618 2 syms_12; SGroup 2833 3 syms_13; SGroup 3468 4 syms_14;
     AGroup 14753 5 syms_15; SGroup 3466 14 syms_17]);
   (219863, 21, [AGroup 5 1 [sym_ppDirective]; AGroup 7968 1 [anon_sym_LBRACK];
     AGroup 7970 1 [anon_sym_LPAREN]; AGroup 7974 1 [anon_sym_POUND]; AGroup 7982 1 [sym_kAt];
     AGroup 7990 1 [sym_kSpecialize]; AGroup 8010 1 [sym_kInherited];
     AGroup 8016 1 [sym_kString]; AGroup 15071 1 [sym_kIf]; AGroup 18534 1 [sym_kNot];
     AGroup 3 2 syms_5; AGroup 7972 2 syms_6; AGroup 7976 2 syms_7; AGroup 7978 2 syms_8;
     AGroup 7980 2 syms_9; AGroup 8004 2 syms_11; SGroup 7299 2 syms_12; SGroup 6388 3 syms_13;
     SGroup 7142 4 syms_14; AGroup 7984 5 syms_15; SGroup 7138 14 syms_17]);
   (219956, 20, [AGroup 5 1 [sym_ppDirective]; AGroup 7968 1 [anon_sym_LBRACK];
     AGroup 7970 1 [anon_sym_LPAREN]; AGroup 7974 1 [anon_sym_POUND];
     AGroup 7990 1 [sym_kSpecialize]; AGroup 8010 1 [sym_kInherited];
     AGroup 8016 1 [sym_kString]; AGroup 15071 1 [sym_kIf]; AGroup 3 2 syms_5;
     AGroup 7972 2 syms_6; AGroup 7976 2 syms_7; AGroup 7978 2 syms_8; AGroup 7980 2 syms_9;
     AGroup 7982 2 syms_10; AGroup 8004 2 syms_11; SGroup 7299 2 syms_12; SGroup 6388 3 syms_13;
     SGroup 7143 4 syms_14; AGroup 7984 5 syms_15; SGroup 7138 14 syms_17]);
   (220047, 20, [AGroup 5 1 [sym_ppDirective]; AGroup 15761 1 [anon_sym_LBRACK];
     AGroup 15763 1 [anon_sym_LPAREN]; AGroup 15767 1 [anon_sym_POUND];
     AGroup 15781 1 [sym_kSpecialize]; AGroup 15787 1 [sym_kInherited]; AGroup 16229 1 [sym_kIf];
     AGroup 17864 1 [sym_kString]; AGroup 3 2 syms_5; AGroup 15765 2 syms_6;
     AGroup 15769 2 syms_7; AGroup 15771 2 syms_8; AGroup 15783 2 syms_11; AGroup 16221 2 syms_9;
     AGroup 16223 2 syms_10; SGroup 9180 2 syms_12; SGroup 7467 3 syms_13;
     SGroup 10059 4 syms_14; AGroup 16225 5 syms_15; SGroup 9076 14 syms_17]);
   (220138, 20, [AGroup 5 1 [sym_ppDirective]; AGroup 15761 1 [anon_sym_LBRACK];
     AGroup 15763 1 [anon_sym_LPAREN]; AGroup 15767 1 [anon_sym_POUND];
     AGroup 15781 1 [sym_kSpecialize]; AGroup 15787 1 [sym_kInherited]; AGroup 16229 1 [sym_kIf];
     AGroup 17864 1 [sym_kString]; AGroup 3 2 syms_5; AGroup 15765 2 syms_6;
     AGroup 15769 2 syms_7; AGroup 15771 2 syms_8; AGroup 15783 2 syms_11; AGroup 16221 2 syms_9;
     AGroup 16223 2 syms_10; SGroup 9180 2 syms_12; SGroup 7467 3 syms_13;
     SGroup 10060 4 syms_14; AGroup 16225 5 syms_15; SGroup 9076 14 syms_17]);
   (220229, 20, [AGroup 5 1 [sym_ppDirective]; AGroup 16715 1 [anon_sym_LBRACK];
     AGroup 16717 1 [anon_sym_LPAREN]; AGroup 16721 1 [anon_sym_POUND];
     AGroup 16735 1 [sym_kSpecialize]; AGroup 16739 1 [sym_kIf]; AGroup 16741 1 [sym_kInherited];
     AGroup 18201 1 [sym_kString]; AGroup 3 2 syms_5; AGroup 16719 2 syms_6;
     AGroup 16723 2 syms_7; AGroup 16725 2 syms_8; AGroup 16727 2 syms_9; AGroup 16729 2 syms_10;
     AGroup 16737 2 syms_11; SGroup 7901 2 syms_12; SGroup 7014 3 syms_13; SGroup 8195 4 syms_14;
     AGroup 16731 5 syms_15; SGroup 7757 14 syms_17])
  ].

(** States 5159 to 5258. *)
Definition small_runs_5159 : list small_run :=
  [
   (220320, 20, [AGroup 5 1 [sym_ppDirective]; AGroup 15831 1 [anon_sym_LBRACK];
     AGroup 15833 1 [anon_sym_LPAREN]; AGroup 15837 1 [anon_sym_POUND];
     AGroup 15851 1 [sym_kSpecialize]; AGroup 15855 1 [sym_kIf]; AGroup 15857 1 [sym_kInherited];
     AGroup 17312 1 [sym_kString]; AGroup 3 2 syms_5; AGroup 15835 2 syms_6;
     AGroup 15839 2 syms_7; AGroup 15841 2 syms_8; AGroup 15843 2 syms_9; AGroup 15845 2 syms_10;
     AGroup 15853 2 syms_11; SGroup 9267 2 syms_12; SGroup 7556 3 syms_13;
     SGroup 10043 4 syms_14; AGroup 15847 5 syms_15; SGroup 8649 14 syms_17]);
   (220411, 20, [AGroup 5 1 [sym_ppDirective]; AGroup 15987 1 [anon_sym_LBRACK];
     AGroup 15989 1 [anon_sym_LPAREN]; AGroup 15993 1 [anon_sym_POUND];
     AGroup 16007 1 [sym_kSpecialize]; AGroup 16011 1 [sym_kIf]; AGroup 16013 1 [sym_kInherited];
     AGroup 18254 1 [sym_kString]; AGroup 3 2 syms_5; AGroup 15991 2 syms_6;
     AGroup 15995 2 syms_7; AGroup 15997 2 syms_8; AGroup 15999 2 syms_9; AGroup 16001 2 syms_10;
     AGroup 16009 2 syms_11; SGroup 9525 2 syms_12; SGroup 7769 3 syms_13;
     SGroup 10065 4 syms_14; AGroup 16003 5 syms_15; SGroup 9072 14 syms_17]);
   (220502, 20, [AGroup 5 1 [sym_ppDirective]; AGroup 7968 1 [anon_sym_LBRACK];
     AGroup 7970 1 [anon_sym_LPAREN]; AGroup 7974 1 [anon_sym_POUND];
     AGroup 7990 1 [sym_kSpecialize]; AGroup 8010 1 [sym_kInherited];
     AGroup 8016 1 [sym_kString]; AGroup 15755 1 [sym_kIf]; AGroup 3 2 syms_5;
     AGroup 7972 2 syms_6; AGroup 7976 2 syms_7; AGroup 7978 2 syms_8; AGroup 8004 2 syms_11;
     AGroup 15747 2 syms_9; AGroup 15749 2 syms_10; SGroup 7299 2 syms_12; SGroup 6388 3 syms_13;
     SGroup 10294 4 syms_14; AGroup 18536 5 syms_15; SGroup 7145 14 syms_17]);
   (220593, 20, [AGroup 5 1 [sym_ppDirective]; AGroup 15761 1 [anon_sym_LBRACK];
     AGroup 15763 1 [anon_sym_LPAREN]; AGroup 15767 1 [anon_sym_POUND];
     AGroup 15781 1 [sym_kSpecialize]; AGroup 15787 1 [sym_kInherited]; AGroup 16229 1 [sym_kIf];
     AGroup 17864 1 [sym_kString]; AGroup 3 2 syms_5; AGroup 15765 2 syms_6;
     AGroup 15769 2 syms_7; AGroup 15771 2 syms_8; AGroup 15783 2 syms_11; AGroup 16221 2 syms_9;
     AGroup 16223 2 syms_10; SGroup 9180 2 syms_12; SGroup 7467 3 syms_13;
     SGroup 10068 4 syms_14; AGroup 16225 5 syms_15; SGroup 9076 14 syms_17]);
   (220684, 20, [AGroup 5 1 [sym_ppDirective]; AGroup 14735 1 [anon_sym_LBRACK];
     AGroup 14737 1 [anon_sym_LPAREN]; AGroup 14741 1 [anon_sym_POUND];
     AGroup 14755 1 [sym_kSpecialize]; AGroup 14759 1 [sym_kIf]; AGroup 14761 1 [sym_kInherited];
     AGroup 14763 1 [sym_kString]; AGroup 3 2 syms_5; AGroup 14739 2 syms_6;
     AGroup 14743 2 syms_7; AGroup 14745 2 syms_8; AGroup 14749 2 syms_9; AGroup 14751 2 syms_10;
     AGroup 14757 2 syms_11; SGroup 3618 2 syms_12; SGroup 2833 3 syms_13; SGroup 3408 4 syms_14;
     AGroup 14753 5 syms_15; SGroup 3466 14 syms_17]);
   (220775, 20, [AGroup 5 1 [sym_ppDirective]; AGroup 15647 1 [anon_sym_LBRACK];
     AGroup 15653 1 [anon_sym_POUND]; AGroup 15667 1 [sym_kSpecialize];
     AGroup 15673 1 [sym_kInherited]; AGroup 15675 1 [sym_kString];
     AGroup 15745 1 [anon_sym_LPAREN]; AGroup 15755 1 [sym_kIf]; AGroup 3 2 syms_5;
     AGroup 15651 2 syms_6; AGroup 15655 2 syms_7; AGroup 15657 2 syms_8; AGroup 15669 2 syms_11;
     AGroup 15747 2 syms_9; AGroup 15749 2 syms_10; SGroup 8129 2 syms_12; SGroup 7100 3 syms_13;
     SGroup 10072 4 syms_14; AGroup 15751 5 syms_15; SGroup 8464 14 syms_17]);
   (220866, 20, [AGroup 5 1 [sym_ppDirective]; AGroup 14735 1 [anon_sym_LBRACK];
     AGroup 14737 1 [anon_sym_LPAREN]; AGroup 14741 1 [anon_sym_POUND];
     AGroup 14755 1 [sym_kSpecialize]; AGroup 14759 1 [sym_kIf]; AGroup 14761 1 [sym_kInherited];
     AGroup 14763 1 [sym_kString]; AGroup 3 2 syms_5; AGroup 14739 2 syms_6;
     AGroup 14743 2 syms_7; AGroup 14745 2 syms_8; AGroup 14749 2 syms_9; AGroup 14751 2 syms_10;
     AGroup 14757 2 syms_11; SGroup 3618 2 syms_12; SGroup 2833 3 syms_13; SGroup 3418 4 syms_14;
     AGroup 14753 5 syms_15; SGroup 3466 14 syms_17]);
   (220957, 20, [AGroup 5 1 [sym_ppDirective]; AGroup 15761 1 [anon_sym_LBRACK];
     AGroup 15763 1 [anon_sym_LPAREN]; AGroup 15767 1 [anon_sym_POUND];
     AGroup 15781 1 [sym_kSpecialize]; AGroup 15787 1 [sym_kInherited]; AGroup 16229 1 [sym_kIf];
     AGroup 17864 1 [sym_kString]; AGroup 3 2 syms_5; AGroup 15765 2 syms_6;
     AGroup 15769 2 syms_7; AGroup 15771 2 syms_8; AGroup 15783 2 syms_11; AGroup 16221 2 syms_9;
     AGroup 16223 2 syms_10; SGroup 9180 2 syms_12; SGroup 7467 3 syms_13;
     SGroup 10085 4 syms_14; AGroup 16225 5 syms_15; SGroup 9076 14 syms_17]);
   (221048, 20, [AGroup 5 1 [sym_ppDirective]; AGroup 15761 1 [anon_sym_LBRACK];
     AGroup 15763 1 [anon_sym_LPAREN]; AGroup 15767 1 [anon_sym_POUND];
     AGroup 15781 1 [sym_kSpecialize]; AGroup 15787 1 [sym_kInherited]; AGroup 16229 1 [sym_kIf];
     AGroup 17864 1 [sym_kString]; AGroup 3 2 syms_5; AGroup 15765 2 syms_6;
     AGroup 15769 2 syms_7; AGroup 15771 2 syms_8; AGroup 15783 2 syms_11; AGroup 16221 2 syms_9;
     AGroup 16223 2 syms_10; SGroup 9180 2 syms_12; SGroup 7467 3 syms_13;
     SGroup 10087 4 syms_14; AGroup 16225 5 syms_15; SGroup 9076 14 syms_17]);
   (221139, 20, [AGroup 5 1 [sym_ppDirective]; AGroup 16715 1 [anon_sym_LBRACK];
     AGroup 16717 1 [anon_sym_LPAREN]; AGroup 16721 1 [anon_sym_POUND];
     AGroup 16735 1 [sym_kSpecialize]; AGroup 16739 1 [sym_kIf]; AGroup 16741 1 [sym_kInherited];
     AGroup 18201 1 [sym_kString]; AGroup 3 2 syms_5; AGroup 16719 2 syms_6;
     AGroup 16723 2 syms_7; AGroup 16725 2 syms_8; AGroup 16727 2 syms_9; AGroup 16729 2 syms_10;
     AGroup 16737 2 syms_11; SGroup 7901 2 syms_12; SGroup 7014 3 syms_13; SGroup 8208 4 syms_14;
     AGroup 16731 5 syms_15; SGroup 7757 14 syms_17]);
   (221230, 20, [AGroup 5 1 [sym_ppDirective]; AGroup 15831 1 [anon_sym_LBRACK];
     AGroup 15833 1 [anon_sym_LPAREN]; AGroup 15837 1 [anon_sym_POUND];
     AGroup 15851 1 [sym_kSpecialize]; AGroup 15855 1 [sym_kIf]; AGroup 15857 1 [sym_kInherited];
     AGroup 17312 1 [sym_kString]; AGroup 3 2 syms_5; AGroup 15835 2 syms_6;
     AGroup 15839 2 syms_7; AGroup 15841 2 syms_8; AGroup 15843 2 syms_9; AGroup 15845 2 syms_10;
     AGroup 15853 2 syms_11; SGroup 9267 2 syms_12; SGroup 7556 3 syms_13;
     SGroup 10063 4 syms_14; AGroup 15847 5 syms_15; SGroup 8649 14 syms_17]);
   (221321, 20, [AGroup 5 1 [sym_ppDirective]; AGroup 15987 1 [anon_sym_LBRACK];
     AGroup 15989 1 [anon_sym_LPAREN]; AGroup 15993 1 [anon_sym_POUND];
     AGroup 16007 1 [sym_kSpecialize]; AGroup 16011 1 [sym_kIf]; AGroup 16013 1 [sym_kInherited];
     AGroup 18254 1 [sym_kString]; AGroup 3 2 syms_5; AGroup 15991 2 syms_6;
     AGroup 15995 2 syms_7; AGroup 15997 2 syms_8; AGroup 15999 2 syms_9; AGroup 16001 2 syms_10;
     AGroup 16009 2 syms_11; SGroup 9525 2 syms_12; SGroup 7769 3 syms_13;
     SGroup 10101 4 syms_14; AGroup 16003 5 syms_15; SGroup 9072 14 syms_17]);
   (221412, 20, [AGroup 5 1 [sym_ppDirective]; AGroup 15761 1 [anon_sym_LBRACK];
     AGroup 15763 1 [anon_sym_LPAREN]; AGroup 15767 1 [anon_sym_POUND];
     AGroup 15781 1 [sym_kSpecialize]; AGroup 15787 1 [sym_kInherited]; AGroup 16229 1 [sym_kIf];
     AGroup 17864 1 [sym_kString]; AGroup 3 2 syms_5; AGroup 15765 2 syms_6;
     AGroup 15769 2 syms_7; AGroup 15771 2 syms_8; AGroup 15783 2 syms_11; AGroup 16221 2 syms_9;
     AGroup 16223 2 syms_10; SGroup 9180 2 syms_12; SGroup 7467 3 syms_13;
     SGroup 10103 4 syms_14; AGroup 16225 5 syms_15; SGroup 9076 14 syms_17]);
   (221503, 21, [AGroup 5 1 [sym_ppDirective]; AGroup 14735 1 [anon_sym_LBRACK];
     AGroup 14737 1 [anon_sym_LPAREN]; AGroup 14741 1 [anon_sym_POUND]; AGroup 14751 1 [sym_kAt];
     AGroup 14755 1 [sym_kSpecialize]; AGroup 14759 1 [sym_kIf]; AGroup 14761 1 [sym_kInherited];
     AGroup 14763 1 [sym_kString]; AGroup 18538 1 [sym_kNot]; AGroup 3 2 syms_5;
     AGroup 14739 2 syms_6; AGroup 14743 2 syms_7; AGroup 14745 2 syms_8; AGroup 14749 2 syms_9;
     AGroup 14757 2 syms_11; SGroup 3618 2 syms_12; SGroup 2833 3 syms_13; SGroup 3418 4 syms_14;
     AGroup 14753 5 syms_15; SGroup 3466 14 syms_17]);
   (221596, 20, [AGroup 5 1 [sym_ppDirective]; AGroup 15647 1 [anon_sym_LBRACK];
     AGroup 15653 1 [anon_sym_POUND]; AGroup 15667 1 [sym_kSpecialize];
     AGroup 15673 1 [sym_kInherited]; AGroup 15675 1 [sym_kString];
     AGroup 15745 1 [anon_sym_LPAREN]; AGroup 15755 1 [sym_kIf]; AGroup 3 2 syms_5;
     AGroup 15651 2 syms_6; AGroup 15655 2 syms_7; AGroup 15657 2 syms_8; AGroup 15669 2 syms_11;
     AGroup 15747 2 syms_9; AGroup 15749 2 syms_10; SGroup 8129 2 syms_12; SGroup 7100 3 syms_13;
     SGroup 10108 4 syms_14; AGroup 15751 5 syms_15; SGroup 8464 14 syms_17]);
   (221687, 20, [AGroup 5 1 [sym_ppDirective]; AGroup 14735 1 [anon_sym_LBRACK];
     AGroup 14737 1 [anon_sym_LPAREN]; AGroup 14741 1 [anon_sym_POUND];
     AGroup 14755 1 [sym_kSpecialize]; AGroup 14759 1 [sym_kIf]; AGroup 14761 1 [sym_kInherited];
     AGroup 14763 1 [sym_kString]; AGroup 3 2 syms_5; AGroup 14739 2 syms_6;
     AGroup 14743 2 syms_7; AGroup 14745 2 syms_8; AGroup 14749 2 syms_9; AGroup 14751 2 syms_10;
     AGroup 14757 2 syms_11; SGroup 3618 2 syms_12; SGroup 2833 3 syms_13; SGroup 3422 4 syms_14;
     AGroup 14753 5 syms_15; SGroup 3466 14 syms_17]);
   (221778, 20, [AGroup 5 1 [sym_ppDirective]; AGroup 16247 1 [anon_sym_LBRACK];
     AGroup 16249 1 [anon_sym_LPAREN]; AGroup 16253 1 [anon_sym_POUND];
     AGroup 16267 1 [sym_kSpecialize]; AGroup 16271 1 [sym_kIf]; AGroup 16273 1 [sym_kInherited];
     AGroup 16745 1 [sym_kString]; AGroup 3 2 syms_5; AGroup 16251 2 syms_6;
     AGroup 16255 2 syms_7; AGroup 16257 2 syms_8; AGroup 16259 2 syms_9; AGroup 16261 2 syms_10;
     AGroup 16269 2 syms_11; SGroup 8258 2 syms_12; SGroup 7207 3 syms_13; SGroup 8084 4 syms_14;
     AGroup 16263 5 syms_15; SGroup 8006 14 syms_17]);
   (221869, 20, [AGroup 5 1 [sym_ppDirective]; AGroup 7968 1 [anon_sym_LBRACK];
     AGroup 7970 1 [anon_sym_LPAREN]; AGroup 7974 1 [anon_sym_POUND];
     AGroup 7990 1 [sym_kSpecialize]; AGroup 8010 1 [sym_kInherited];
     AGroup 8016 1 [sym_kString]; AGroup 15071 1 [sym_kIf]; AGroup 3 2 syms_5;
     AGroup 7972 2 syms_6; AGroup 7976 2 syms_7; AGroup 7978 2 syms_8; AGroup 7980 2 syms_9;
     AGroup 7982 2 syms_10; AGroup 8004 2 syms_11; SGroup 7299 2 syms_12; SGroup 6388 3 syms_13;
     SGroup 7146 4 syms_14; AGroup 7984 5 syms_15; SGroup 7138 14 syms_17]);
   (221960, 20, [AGroup 5 1 [sym_ppDirective]; AGroup 15761 1 [anon_sym_LBRACK];
     AGroup 15763 1 [anon_sym_LPAREN]; AGroup 15767 1 [anon_sym_POUND];
     AGroup 15781 1 [sym_kSpecialize]; AGroup 15787 1 [sym_kInherited]; AGroup 16229 1 [sym_kIf];
     AGroup 17864 1 [sym_kString]; AGroup 3 2 syms_5; AGroup 15765 2 syms_6;
     AGroup 15769 2 syms_7; AGroup 15771 2 syms_8; AGroup 15783 2 syms_11; AGroup 16221 2 syms_9;
     AGroup 16223 2 syms_10; SGroup 9180 2 syms_12; SGroup 7467 3 syms_13;
     SGroup 10115 4 syms_14; AGroup 16225 5 syms_15; SGroup 9076 14 syms_17]);
   (222051, 20, [AGroup 5 1 [sym_ppDirective]; AGroup 15761 1 [anon_sym_LBRACK];
     AGroup 15763 1 [anon_sym_LPAREN]; AGroup 15767 1 [anon_sym_POUND];
     AGroup 15781 1 [sym_kSpecialize]; AGroup 15787 1 [sym_kInherited]; AGroup 16229 1 [sym_kIf];
     AGroup 17864 1 [sym_kString]; AGroup 3 2 syms_5; AGroup 15765 2 syms_6;
     AGroup 15769 2 syms_7; AGroup 15771 2 syms_8; AGroup 15783 2 syms_11; AGroup 16221 2 syms_9;
     AGroup 16223 2 syms_10; SGroup 9180 2 syms_12; SGroup 7467 3 syms_13;
     SGroup 10116 4 syms_14; AGroup 16225 5 syms_15; SGroup 9076 14 syms_17]);
   (222142, 20, [AGroup 5 1 [sym_ppDirective]; AGroup 16715 1 [anon_sym_LBRACK];
     AGroup 16717 1 [anon_sym_LPAREN]; AGroup 16721 1 [anon_sym_POUND];
     AGroup 16735 1 [sym_kSpecialize]; AGroup 16739 1 [sym_kIf]; AGroup 16741 1 [sym_kInherited];
     AGroup 18201 1 [sym_kString]; AGroup 3 2 syms_5; AGroup 16719 2 syms_6;
     AGroup 16723 2 syms_7; AGroup 16725 2 syms_8; AGroup 16727 2 syms_9; AGroup 16729 2 syms_10;
     AGroup 16737 2 syms_11; SGroup 7901 2 syms_12; SGroup 7014 3 syms_13; SGroup 8214 4 syms_14;
     AGroup 16731 5 syms_15; SGroup 7757 14 syms_17]);
   (222233, 20, [AGroup 5 1 [sym_ppDirective]; AGroup 15831 1 [anon_sym_LBRACK];
     AGroup 15833 1 [anon_sym_LPAREN]; AGroup 15837 1 [anon_sym_POUND];
     AGroup 15851 1 [sym_kSpecialize]; AGroup 15855 1 [sym_kIf]; AGroup 15857 1 [sym_kInherited];
     AGroup 17312 1 [sym_kString]; AGroup 3 2 syms_5; AGroup 15835 2 syms_6;
     AGroup 15839 2 syms_7; AGroup 15841 2 syms_8; AGroup 15843 2 syms_9; AGroup 15845 2 syms_10;
     AGroup 15853 2 syms_11; SGroup 9267 2 syms_12; SGroup 7556 3 syms_13;
     SGroup 10089 4 syms_14; AGroup 15847 5 syms_15; SGroup 8649 14 syms_17]);
   (222324, 20, [AGroup 5 1 [sym_ppDirective]; AGroup 15987 1 [anon_sym_LBRACK];
     AGroup 15989 1 [anon_sym_LPAREN]; AGroup 15993 1 [anon_sym_POUND];
     AGroup 16007 1 [sym_kSpecialize]; AGroup 16011 1 [sym_kIf]; AGroup 16013 1 [sym_kInherited];
     AGroup 18254 1 [sym_kString]; AGroup 3 2 syms_5; AGroup 15991 2 syms_6;
     AGroup 15995 2 syms_7; AGroup 15997 2 syms_8; AGroup 15999 2 syms_9; AGroup 16001 2 syms_10;
     AGroup 16009 2 syms_11; SGroup 9525 2 syms_12; SGroup 7769 3 syms_13;
     SGroup 10136 4 syms_14; AGroup 16003 5 syms_15; SGroup 9072 14 syms_17]);
   (222415, 20, [AGroup 5 1 [sym_ppDirective]; AGroup 399 1 [anon_sym_LBRACK];
     AGroup 401 1 [anon_sym_LPAREN]; AGroup 405 1 [anon_sym_POUND];
     AGroup 423 1 [sym_kSpecialize]; AGroup 445 1 [sym_kInherited]; AGroup 451 1 [sym_kString];
     AGroup 15601 1 [sym_kIf]; AGroup 3 2 syms_5; AGroup 403 2 syms_6; AGroup 407 2 syms_7;
     AGroup 409 2 syms_8; AGroup 413 2 syms_9; AGroup 415 2 syms_10; AGroup 439 2 syms_11;
     SGroup 7742 2 syms_12; SGroup 6664 3 syms_13; SGroup 7391 4 syms_14; AGroup 417 5 syms_15;
     SGroup 7478 14 syms_17]);
   (222506, 20, [AGroup 5 1 [sym_ppDirective]; AGroup 15761 1 [anon_sym_LBRACK];
     AGroup 15763 1 [anon_sym_LPAREN]; AGroup 15767 1 [anon_sym_POUND];
     AGroup 15781 1 [sym_kSpecialize]; AGroup 15787 1 [sym_kInherited]; AGroup 16229 1 [sym_kIf];
     AGroup 17864 1 [sym_kString]; AGroup 3 2 syms_5; AGroup 15765 2 syms_6;
     AGroup 15769 2 syms_7; AGroup 15771 2 syms_8; AGroup 15783 2 syms_11; AGroup 16221 2 syms_9;
     AGroup 16223 2 syms_10; SGroup 9180 2 syms_12; SGroup 7467 3 syms_13;
     SGroup 10143 4 syms_14; AGroup 16225 5 syms_15; SGroup 9076 14 syms_17]);
   (222597, 20, [AGroup 5 1 [sym_ppDirective]; AGroup 15647 1 [anon_sym_LBRACK];
     AGroup 15653 1 [anon_sym_POUND]; AGroup 15667 1 [sym_kSpecialize];
     AGroup 15673 1 [sym_kInherited]; AGroup 15675 1 [sym_kString];
     AGroup 15745 1 [anon_sym_LPAREN]; AGroup 15755 1 [sym_kIf]; AGroup 3 2 syms_5;
     AGroup 15651 2 syms_6; AGroup 15655 2 syms_7; AGroup 15657 2 syms_8; AGroup 15669 2 syms_11;
     AGroup 15747 2 syms_9; AGroup 15749 2 syms_10; SGroup 8129 2 syms_12; SGroup 7100 3 syms_13;
     SGroup 10150 4 syms_14; AGroup 15751 5 syms_15; SGroup 8464 14 syms_17]);
   (222688, 20, [AGroup 5 1 [sym_ppDirective]; AGroup 673 1 [anon_sym_LBRACK];
     AGroup 675 1 [anon_sym_LPAREN]; AGroup 679 1 [anon_sym_POUND];
     AGroup 695 1 [sym_kSpecialize]; AGroup 717 1 [sym_kInherited]; AGroup 723 1 [sym_kString];
     AGroup 15297 1 [sym_kIf]; AGroup 3 2 syms_5; AGroup 677 2 syms_6; AGroup 681 2 syms_7;
     AGroup 683 2 syms_8; AGroup 685 2 syms_9; AGroup 687 2 syms_10; AGroup 711 2 syms_11;
     SGroup 7426 2 syms_12; SGroup 6541 3 syms_13; SGroup 7318 4 syms_14; AGroup 689 5 syms_15;
     SGroup 7259 14 syms_17]);
   (222779, 20, [AGroup 5 1 [sym_ppDirective]; AGroup 15761 1 [anon_sym_LBRACK];
     AGroup 15763 1 [anon_sym_LPAREN]; AGroup 15767 1 [anon_sym_POUND];
     AGroup 15781 1 [sym_kSpecialize]; AGroup 15787 1 [sym_kInherited]; AGroup 16229 1 [sym_kIf];
     AGroup 17864 1 [sym_kString]; AGroup 3 2 syms_5; AGroup 15765 2 syms_6;
     AGroup 15769 2 syms_7; AGroup 15771 2 syms_8; AGroup 15783 2 syms_11; AGroup 16221 2 syms_9;
     AGroup 16223 2 syms_10; SGroup 9180 2 syms_12; SGroup 7467 3 syms_13;
     SGroup 10161 4 syms_14; AGroup 16225 5 syms_15; SGroup 9076 14 syms_17]);
   (222870, 20, [AGroup 5 1 [sym_ppDirective]; AGroup 15761 1 [anon_sym_LBRACK];
     AGroup 15763 1 [anon_sym_LPAREN]; AGroup 15767 1 [anon_sym_POUND];
     AGroup 15781 1 [sym_kSpecialize]; AGroup 15787 1 [sym_kInherited]; AGroup 16229 1 [sym_kIf];
     AGroup 17864 1 [sym_kString]; AGroup 3 2 syms_5; AGroup 15765 2 syms_6;
     AGroup 15769 2 syms_7; AGroup 15771 2 syms_8; AGroup 15783 2 syms_11; AGroup 16221 2 syms_9;
     AGroup 16223 2 syms_10; SGroup 9180 2 syms_12; SGroup 7467 3 syms_13;
     SGroup 10162 4 syms_14; AGroup 16225 5 syms_15; SGroup 9076 14 syms_17]);
   (222961, 20, [AGroup 5 1 [sym_ppDirective]; AGroup 16715 1 [anon_sym_LBRACK];
     AGroup 16717 1 [anon_sym_LPAREN]; AGroup 16721 1 [anon_sym_POUND];
     AGroup 16735 1 [sym_kSpecialize]; AGroup 16739 1 [sym_kIf]; AGroup 16741 1 [sym_kInherited];
     AGroup 18201 1 [sym_kString]; AGroup 3 2 syms_5; AGroup 16719 2 syms_6;
     AGroup 16723 2 syms_7; AGroup 16725 2 syms_8; AGroup 16727 2 syms_9; AGroup 16729 2 syms_10;
     AGroup 16737 2 syms_11; SGroup 7901 2 syms_12; SGroup 7014 3 syms_13; SGroup 8225 4 syms_14;
     AGroup 16731 5 syms_15; SGroup 7757 14 syms_17]);
   (223052, 20, [AGroup 5 1 [sym_ppDirective]; AGroup 15831 1 [anon_sym_LBRACK];
     AGroup 15833 1 [anon_sym_LPAREN]; AGroup 15837 1 [anon_sym_POUND];
     AGroup 15851 1 [sym_kSpecialize]; AGroup 15855 1 [sym_kIf]; AGroup 15857 1 [sym_kInherited];
     AGroup 17312 1 [sym_kString]; AGroup 3 2 syms_5; AGroup 15835 2 syms_6;
     AGroup 15839 2 syms_7; AGroup 15841 2 syms_8; AGroup 15843 2 syms_9; AGroup 15845 2 syms_10;
     AGroup 15853 2 syms_11; SGroup 9267 2 syms_12; SGroup 7556 3 syms_13;
     SGroup 10120 4 syms_14; AGroup 15847 5 syms_15; SGroup 8649 14 syms_17]);
   (223143, 20, [AGroup 5 1 [sym_ppDirective]; AGroup 15987 1 [anon_sym_LBRACK];
     AGroup 15989 1 [anon_sym_LPAREN]; AGroup 15993 1 [anon_sym_POUND];
     AGroup 16007 1 [sym_kSpecialize]; AGroup 16011 1 [sym_kIf]; AGroup 16013 1 [sym_kInherited];
     AGroup 18254 1 [sym_kString]; AGroup 3 2 syms_5; AGroup 15991 2 syms_6;
     AGroup 15995 2 syms_7; AGroup 15997 2 syms_8; AGroup 15999 2 syms_9; AGroup 16001 2 syms_10;
     AGroup 16009 2 syms_11; SGroup 9525 2 syms_12; SGroup 7769 3 syms_13;
     SGroup 10182 4 syms_14; AGroup 16003 5 syms_15; SGroup 9072 14 syms_17]);
   (223234, 20, [AGroup 5 1 [sym_ppDirective]; AGroup 15987 1 [anon_sym_LBRACK];
     AGroup 15989 1 [anon_sym_LPAREN]; AGroup 15993 1 [anon_sym_POUND];
     AGroup 16007 1 [sym_kSpecialize]; AGroup 16011 1 [sym_kIf]; AGroup 16013 1 [sym_kInherited];
     AGroup 18254 1 [sym_kString]; AGroup 3 2 syms_5; AGroup 15991 2 syms_6;
     AGroup 15995 2 syms_7; AGroup 15997 2 syms_8; AGroup 15999 2 syms_9; AGroup 16001 2 syms_10;
     AGroup 16009 2 syms_11; SGroup 9525 2 syms_12; SGroup 7769 3 syms_13; SGroup 9915 4 syms_14;
     AGroup 16003 5 syms_15; SGroup 9072 14 syms_17]);
   (223325, 20, [AGroup 5 1 [sym_ppDirective]; AGroup 15761 1 [anon_sym_LBRACK];
     AGroup 15763 1 [anon_sym_LPAREN]; AGroup 15767 1 [anon_sym_POUND];
     AGroup 15781 1 [sym_kSpecialize]; AGroup 15787 1 [sym_kInherited]; AGroup 16229 1 [sym_kIf];
     AGroup 17864 1 [sym_kString]; AGroup 3 2 syms_5; AGroup 15765 2 syms_6;
     AGroup 15769 2 syms_7; AGroup 15771 2 syms_8; AGroup 15783 2 syms_11; AGroup 16221 2 syms_9;
     AGroup 16223 2 syms_10; SGroup 9180 2 syms_12; SGroup 7467 3 syms_13;
     SGroup 10210 4 syms_14; AGroup 16225 5 syms_15; SGroup 9076 14 syms_17]);
   (223416, 20, [AGroup 5 1 [sym_ppDirective]; AGroup 15647 1 [anon_sym_LBRACK];
     AGroup 15653 1 [anon_sym_POUND]; AGroup 15667 1 [sym_kSpecialize];
     AGroup 15673 1 [sym_kInherited]; AGroup 15675 1 [sym_kString];
     AGroup 15745 1 [anon_sym_LPAREN]; AGroup 15755 1 [sym_kIf]; AGroup 3 2 syms_5;
     AGroup 15651 2 syms_6; AGroup 15655 2 syms_7; AGroup 15657 2 syms_8; AGroup 15669 2 syms_11;
     AGroup 15747 2 syms_9; AGroup 15749 2 syms_10; SGroup 8129 2 syms_12; SGroup 7100 3 syms_13;
     SGroup 10213 4 syms_14; AGroup 15751 5 syms_15; SGroup 8464 14 syms_17]);
   (223507, 20, [AGroup 5 1 [sym_ppDirective]; AGroup 14735 1 [anon_sym_LBRACK];
     AGroup 14737 1 [anon_sym_LPAREN]; AGroup 14741 1 [anon_sym_POUND];
     AGroup 14755 1 [sym_kSpecialize]; AGroup 14761 1 [sym_kInherited];
     AGroup 14763 1 [sym_kString]; AGroup 15755 1 [sym_kIf]; AGroup 3 2 syms_5;
     AGroup 14739 2 syms_6; AGroup 14743 2 syms_7; AGroup 14745 2 syms_8; AGroup 14757 2 syms_11;
     AGroup 15747 2 syms_9; AGroup 15749 2 syms_10; SGroup 3618 2 syms_12; SGroup 2833 3 syms_13;
     SGroup 10290 4 syms_14; AGroup 18540 5 syms_15; SGroup 3426 14 syms_17]);
   (223598, 20, [AGroup 5 1 [sym_ppDirective]; AGroup 15761 1 [anon_sym_LBRACK];
     AGroup 15763 1 [anon_sym_LPAREN]; AGroup 15767 1 [anon_sym_POUND];
     AGroup 15781 1 [sym_kSpecialize]; AGroup 15787 1 [sym_kInherited]; AGroup 16229 1 [sym_kIf];
     AGroup 17864 1 [sym_kString]; AGroup 3 2 syms_5; AGroup 15765 2 syms_6;
     AGroup 15769 2 syms_7; AGroup 15771 2 syms_8; AGroup 15783 2 syms_11; AGroup 16221 2 syms_9;
     AGroup 16223 2 syms_10; SGroup 9180 2 syms_12; SGroup 7467 3 syms_13;
     SGroup 10221 4 syms_14; AGroup 16225 5 syms_15; SGroup 9076 14 syms_17]);
   (223689, 20, [AGroup 5 1 [sym_ppDirective]; AGroup 15761 1 [anon_sym_LBRACK];
     AGroup 15763 1 [anon_sym_LPAREN]; AGroup 15767 1 [anon_sym_POUND];
     AGroup 15781 1 [sym_kSpecialize]; AGroup 15787 1 [sym_kInherited]; AGroup 16229 1 [sym_kIf];
     AGroup 17864 1 [sym_kString]; AGroup 3 2 syms_5; AGroup 15765 2 syms_6;
     AGroup 15769 2 syms_7; AGroup 15771 2 syms_8; AGroup 15783 2 syms_11; AGroup 16221 2 syms_9;
     AGroup 16223 2 syms_10; SGroup 9180 2 syms_12; SGroup 7467 3 syms_13;
     SGroup 10222 4 syms_14; AGroup 16225 5 syms_15; SGroup 9076 14 syms_17]);
   (223780, 20, [AGroup 5 1 [sym_ppDirective]; AGroup 16715 1 [anon_sym_LBRACK];
     AGroup 16717 1 [anon_sym_LPAREN]; AGroup 16721 1 [anon_sym_POUND];
     AGroup 16735 1 [sym_kSpecialize]; AGroup 16739 1 [sym_kIf]; AGroup 16741 1 [sym_kInherited];
     AGroup 18201 1 [sym_kString]; AGroup 3 2 syms_5; AGroup 16719 2 syms_6;
     AGroup 16723 2 syms_7; AGroup 16725 2 syms_8; AGroup 16727 2 syms_9; AGroup 16729 2 syms_10;
     AGroup 16737 2 syms_11; SGroup 7901 2 syms_12; SGroup 7014 3 syms_13; SGroup 8237 4 syms_14;
     AGroup 16731 5 syms_15; SGroup 7757 14 syms_17]);
   (223871, 20, [AGroup 5 1 [sym_ppDirective]; AGroup 15831 1 [anon_sym_LBRACK];
     AGroup 15833 1 [anon_sym_LPAREN]; AGroup 15837 1 [anon_sym_POUND];
     AGroup 15851 1 [sym_kSpecialize]; AGroup 15855 1 [sym_kIf]; AGroup 15857 1 [sym_kInherited];
     AGroup 17312 1 [sym_kString]; AGroup 3 2 syms_5; AGroup 15835 2 syms_6;
     AGroup 15839 2 syms_7; AGroup 15841 2 syms_8; AGroup 15843 2 syms_9; AGroup 15845 2 syms_10;
     AGroup 15853 2 syms_11; SGroup 9267 2 syms_12; SGroup 7556 3 syms_13;
     SGroup 10236 4 syms_14; AGroup 15847 5 syms_15; SGroup 8649 14 syms_17]);
   (223962, 20, [AGroup 5 1 [sym_ppDirective]; AGroup 15987 1 [anon_sym_LBRACK];
     AGroup 15989 1 [anon_sym_LPAREN]; AGroup 15993 1 [anon_sym_POUND];
     AGroup 16007 1 [sym_kSpecialize]; AGroup 16011 1 [sym_kIf]; AGroup 16013 1 [sym_kInherited];
     AGroup 18254 1 [sym_kString]; AGroup 3 2 syms_5; AGroup 15991 2 syms_6;
     AGroup 15995 2 syms_7; AGroup 15997 2 syms_8; AGroup 15999 2 syms_9; AGroup 16001 2 syms_10;
     AGroup 16009 2 syms_11; SGroup 9525 2 syms_12; SGroup 7769 3 syms_13;
     SGroup 10228 4 syms_14; AGroup 16003 5 syms_15; SGroup 9072 14 syms_17]);
   (224053, 20, [AGroup 5 1 [sym_ppDirective]; AGroup 15761 1 [anon_sym_LBRACK];
     AGroup 15763 1 [anon_sym_LPAREN]; AGroup 15767 1 [anon_sym_POUND];
     AGroup 15781 1 [sym_kSpecialize]; AGroup 15787 1 [sym_kInherited]; AGroup 16229 1 [sym_kIf];
     AGroup 17864 1 [sym_kString]; AGroup 3 2 syms_5; AGroup 15765 2 syms_6;
     AGroup 15769 2 syms_7; AGroup 15771 2 syms_8; AGroup 15783 2 syms_11; AGroup 16221 2 syms_9;
     AGroup 16223 2 syms_10; SGroup 9180 2 syms_12; SGroup 7467 3 syms_13;
     SGroup 10230 4 syms_14; AGroup 16225 5 syms_15; SGroup 9076 14 syms_17]);
   (224144, 20, [AGroup 5 1 [sym_ppDirective]; AGroup 15647 1 [anon_sym_LBRACK];
     AGroup 15653 1 [anon_sym_POUND]; AGroup 15667 1 [sym_kSpecialize];
     AGroup 15673 1 [sym_kInherited]; AGroup 15675 1 [sym_kString];
     AGroup 15745 1 [anon_sym_LPAREN]; AGroup 15755 1 [sym_kIf]; AGroup 3 2 syms_5;
     AGroup 15651 2 syms_6; AGroup 15655 2 syms_7; AGroup 15657 2 syms_8; AGroup 15669 2 syms_11;
     AGroup 15747 2 syms_9; AGroup 15749 2 syms_10; SGroup 8129 2 syms_12; SGroup 7100 3 syms_13;
     SGroup 10233 4 syms_14; AGroup 15751 5 syms_15; SGroup 8464 14 syms_17]);
   (224235, 31, [AGroup 5 1 [sym_ppDirective]; AGroup 13347 1 [anon_sym_LBRACK];
     AGroup 13351 1 [aux_sym_ppUsesBlock_token1]; AGroup 13365 1 [sym_identifier];
     AGroup 13367 1 [sym_kGeneric]; AGroup 13369 1 [sym_kOperator]; AGroup 13373 1 [sym_kStrict];
     AGroup 13377 1 [sym_kCase]; AGroup 13379 1 [sym_kClass]; AGroup 13391 1 [sym_kProperty];
     AGroup 13395 1 [sym_kType]; AGroup 18542 1 [anon_sym_SEMI]; AGroup 18544 1 [sym_kEnd];
     SGroup 2 1 [sym__ppIf]; SGroup 6354 1 [sym__visibility]; SGroup 9779 1 [sym_ppBlock];
     SGroup 9835 1 [sym__declOperator]; SGroup 10247 1 [sym__declProc];
     SGroup 10617 1 [sym_rttiAttributes]; SGroup 10730 1 [aux_sym_rttiAttributes_repeat2];
     SGroup 13987 1 [aux_sym_genericArg_repeat1]; SGroup 14434 1 [sym_declVariant];
     SGroup 14611 1 [sym__declClass]; AGroup 3 2 syms_5; AGroup 13381 2 syms_65;
     AGroup 13393 2 syms_66; SGroup 5685 2 syms_68; SGroup 10490 3 syms_69;
     AGroup 13383 4 syms_3; AGroup 13371 6 syms_70; SGroup 6150 6 syms_71]);
   (224348, 20, [AGroup 5 1 [sym_ppDirective]; AGroup 7968 1 [anon_sym_LBRACK];
     AGroup 7970 1 [anon_sym_LPAREN]; AGroup 7974 1 [anon_sym_POUND];
     AGroup 7990 1 [sym_kSpecialize]; AGroup 8010 1 [sym_kInherited];
     AGroup 8016 1 [sym_kString]; AGroup 15071 1 [sym_kIf]; AGroup 3 2 syms_5;
     AGroup 7972 2 syms_6; AGroup 7976 2 syms_7; AGroup 7978 2 syms_8; AGroup 7980 2 syms_9;
     AGroup 7982 2 syms_10; AGroup 8004 2 syms_11; SGroup 7299 2 syms_12; SGroup 6388 3 syms_13;
     SGroup 7147 4 syms_14; AGroup 7984 5 syms_15; SGroup 7138 14 syms_17]);
   (224439, 20, [AGroup 5 1 [sym_ppDirective]; AGroup 15761 1 [anon_sym_LBRACK];
     AGroup 15763 1 [anon_sym_LPAREN]; AGroup 15767 1 [anon_sym_POUND];
     AGroup 15781 1 [sym_kSpecialize]; AGroup 15787 1 [sym_kInherited]; AGroup 16229 1 [sym_kIf];
     AGroup 17864 1 [sym_kString]; AGroup 3 2 syms_5; AGroup 15765 2 syms_6;
     AGroup 15769 2 syms_7; AGroup 15771 2 syms_8; AGroup 15783 2 syms_11; AGroup 16221 2 syms_9;
     AGroup 16223 2 syms_10; SGroup 9180 2 syms_12; SGroup 7467 3 syms_13;
     SGroup 10237 4 syms_14; AGroup 16225 5 syms_15; SGroup 9076 14 syms_17]);
   (224530, 20, [AGroup 5 1 [sym_ppDirective]; AGroup 15761 1 [anon_sym_LBRACK];
     AGroup 15763 1 [anon_sym_LPAREN]; AGroup 15767 1 [anon_sym_POUND];
     AGroup 15781 1 [sym_kSpecialize]; AGroup 15787 1 [sym_kInherited]; AGroup 16229 1 [sym_kIf];
     AGroup 17864 1 [sym_kString]; AGroup 3 2 syms_5; AGroup 15765 2 syms_6;
     AGroup 15769 2 syms_7; AGroup 15771 2 syms_8; AGroup 15783 2 syms_11; AGroup 16221 2 syms_9;
     AGroup 16223 2 syms_10; SGroup 9180 2 syms_12; SGroup 7467 3 syms_13;
     SGroup 10238 4 syms_14; AGroup 16225 5 syms_15; SGroup 9076 14 syms_17]);
   (224621, 20, [AGroup 5 1 [sym_ppDirective]; AGroup 16715 1 [anon_sym_LBRACK];
     AGroup 16717 1 [anon_sym_LPAREN]; AGroup 16721 1 [anon_sym_POUND];
     AGroup 16735 1 [sym_kSpecialize]; AGroup 16739 1 [sym_kIf]; AGroup 16741 1 [sym_kInherited];
     AGroup 18201 1 [sym_kString]; AGroup 3 2 syms_5; AGroup 16719 2 syms_6;
     AGroup 16723 2 syms_7; AGroup 16725 2 syms_8; AGroup 16727 2 syms_9; AGroup 16729 2 syms_10;
     AGroup 16737 2 syms_11; SGroup 7901 2 syms_12; SGroup 7014 3 syms_13; SGroup 8244 4 syms_14;
     AGroup 16731 5 syms_15; SGroup 7757 14 syms_17]);
   (224712, 20, [AGroup 5 1 [sym_ppDirective]; AGroup 15831 1 [anon_sym_LBRACK];
     AGroup 15833 1 [anon_sym_LPAREN]; AGroup 15837 1 [anon_sym_POUND];
     AGroup 15851 1 [sym_kSpecialize]; AGroup 15855 1 [sym_kIf]; AGroup 15857 1 [sym_kInherited];
     AGroup 17312 1 [sym_kString]; AGroup 3 2 syms_5; AGroup 15835 2 syms_6;
     AGroup 15839 2 syms_7; AGroup 15841 2 syms_8; AGroup 15843 2 syms_9; AGroup 15845 2 syms_10;
     AGroup 15853 2 syms_11; SGroup 9267 2 syms_12; SGroup 7556 3 syms_13;
     SGroup 10166 4 syms_14; AGroup 15847 5 syms_15; SGroup 8649 14 syms_17]);
   (224803, 20, [AGroup 5 1 [sym_ppDirective]; AGroup 15987 1 [anon_sym_LBRACK];
     AGroup 15989 1 [anon_sym_LPAREN]; AGroup 15993 1 [anon_sym_POUND];
     AGroup 16007 1 [sym_kSpecialize]; AGroup 16011 1 [sym_kIf]; AGroup 16013 1 [sym_kInherited];
     AGroup 18254 1 [sym_kString]; AGroup 3 2 syms_5; AGroup 15991 2 syms_6;
     AGroup 15995 2 syms_7; AGroup 15997 2 syms_8; AGroup 15999 2 syms_9; AGroup 16001 2 syms_10;
     AGroup 16009 2 syms_11; SGroup 9525 2 syms_12; SGroup 7769 3 syms_13; SGroup 9827 4 syms_14;
     AGroup 16003 5 syms_15; SGroup 9072 14 syms_17]);
   (224894, 20, [AGroup 5 1 [sym_ppDirective]; AGroup 673 1 [anon_sym_LBRACK];
     AGroup 675 1 [anon_sym_LPAREN]; AGroup 679 1 [anon_sym_POUND];
     AGroup 695 1 [sym_kSpecialize]; AGroup 717 1 [sym_kInherited]; AGroup 723 1 [sym_kString];
     AGroup 15297 1 [sym_kIf]; AGroup 3 2 syms_5; AGroup 677 2 syms_6; AGroup 681 2 syms_7;
     AGroup 683 2 syms_8; AGroup 685 2 syms_9; AGroup 687 2 syms_10; AGroup 711 2 syms_11;
     SGroup 7426 2 syms_12; SGroup 6541 3 syms_13; SGroup 7309 4 syms_14; AGroup 689 5 syms_15;
     SGroup 7259 14 syms_17]);
   (224985, 20, [AGroup 5 1 [sym_ppDirective]; AGroup 15761 1 [anon_sym_LBRACK];
     AGroup 15763 1 [anon_sym_LPAREN]; AGroup 15767 1 [anon_sym_POUND];
     AGroup 15781 1 [sym_kSpecialize]; AGroup 15787 1 [sym_kInherited]; AGroup 16229 1 [sym_kIf];
     AGroup 17864 1 [sym_kString]; AGroup 3 2 syms_5; AGroup 15765 2 syms_6;
     AGroup 15769 2 syms_7; AGroup 15771 2 syms_8; AGroup 15783 2 syms_11; AGroup 16221 2 syms_9;
     AGroup 16223 2 syms_10; SGroup 9180 2 syms_12; SGroup 7467 3 syms_13; SGroup 9830 4 syms_14;
     AGroup 16225 5 syms_15; SGroup 9076 14 syms_17]);
   (225076, 2, [AGroup 3 3 syms_1; AGroup 15590 47 syms_155]);
   (225131, 20, [AGroup 5 1 [sym_ppDirective]; AGroup 15647 1 [anon_sym_LBRACK];
     AGroup 15653 1 [anon_sym_POUND]; AGroup 15667 1 [sym_kSpecialize];
     AGroup 15673 1 [sym_kInherited]; AGroup 15675 1 [sym_kString];
     AGroup 15745 1 [anon_sym_LPAREN]; AGroup 15755 1 [sym_kIf]; AGroup 3 2 syms_5;
     AGroup 15651 2 syms_6; AGroup 15655 2 syms_7; AGroup 15657 2 syms_8; AGroup 15669 2 syms_11;
     AGroup 15747 2 syms_9; AGroup 15749 2 syms_10; SGroup 8129 2 syms_12; SGroup 7100 3 syms_13;
     SGroup 9832 4 syms_14; AGroup 15751 5 syms_15; SGroup 8464 14 syms_17]);
   (225222, 4, [AGroup 18546 1 [sym_identifier]; SGroup 5140 1 [aux_sym_declVar_repeat1]; AGroup 3 3 syms_1;
     AGroup 18548 45 syms_162]);
   (225281, 20, [AGroup 5 1 [sym_ppDirective]; AGroup 14821 1 [anon_sym_LBRACK];
     AGroup 14823 1 [anon_sym_LPAREN]; AGroup 14827 1 [anon_sym_POUND];
     AGroup 14839 1 [sym_kSpecialize]; AGroup 14843 1 [sym_kIf]; AGroup 14845 1 [sym_kInherited];
     AGroup 14847 1 [sym_kString]; AGroup 3 2 syms_5; AGroup 14825 2 syms_6;
     AGroup 14829 2 syms_7; AGroup 14831 2 syms_8; AGroup 14833 2 syms_9; AGroup 14835 2 syms_10;
     AGroup 14841 2 syms_11; SGroup 5943 2 syms_12; SGroup 3840 3 syms_13; SGroup 5827 4 syms_14;
     AGroup 14837 5 syms_15; SGroup 5828 14 syms_17]);
   (225372, 20, [AGroup 5 1 [sym_ppDirective]; AGroup 15761 1 [anon_sym_LBRACK];
     AGroup 15763 1 [anon_sym_LPAREN]; AGroup 15767 1 [anon_sym_POUND];
     AGroup 15781 1 [sym_kSpecialize]; AGroup 15787 1 [sym_kInherited]; AGroup 16229 1 [sym_kIf];
     AGroup 17864 1 [sym_kString]; AGroup 3 2 syms_5; AGroup 15765 2 syms_6;
     AGroup 15769 2 syms_7; AGroup 15771 2 syms_8; AGroup 15783 2 syms_11; AGroup 16221 2 syms_9;
     AGroup 16223 2 syms_10; SGroup 9180 2 syms_12; SGroup 7467 3 syms_13; SGroup 9839 4 syms_14;
     AGroup 16225 5 syms_15; SGroup 9076 14 syms_17]);
   (225463, 20, [AGroup 5 1 [sym_ppDirective]; AGroup 15761 1 [anon_sym_LBRACK];
     AGroup 15763 1 [anon_sym_LPAREN]; AGroup 15767 1 [anon_sym_POUND];
     AGroup 15781 1 [sym_kSpecialize]; AGroup 15787 1 [sym_kInherited]; AGroup 16229 1 [sym_kIf];
     AGroup 17864 1 [sym_kString]; AGroup 3 2 syms_5; AGroup 15765 2 syms_6;
     AGroup 15769 2 syms_7; AGroup 15771 2 syms_8; AGroup 15783 2 syms_11; AGroup 16221 2 syms_9;
     AGroup 16223 2 syms_10; SGroup 9180 2 syms_12; SGroup 7467 3 syms_13; SGroup 9842 4 syms_14;
     AGroup 16225 5 syms_15; SGroup 9076 14 syms_17]);
   (225554, 20, [AGroup 5 1 [sym_ppDirective]; AGroup 16715 1 [anon_sym_LBRACK];
     AGroup 16717 1 [anon_sym_LPAREN]; AGroup 16721 1 [anon_sym_POUND];
     AGroup 16735 1 [sym_kSpecialize]; AGroup 16739 1 [sym_kIf]; AGroup 16741 1 [sym_kInherited];
     AGroup 18201 1 [sym_kString]; AGroup 3 2 syms_5; AGroup 16719 2 syms_6;
     AGroup 16723 2 syms_7; AGroup 16725 2 syms_8; AGroup 16727 2 syms_9; AGroup 16729 2 syms_10;
     AGroup 16737 2 syms_11; SGroup 7901 2 syms_12; SGroup 7014 3 syms_13; SGroup 8250 4 syms_14;
     AGroup 16731 5 syms_15; SGroup 7757 14 syms_17]);
   (225645, 20, [AGroup 5 1 [sym_ppDirective]; AGroup 15831 1 [anon_sym_LBRACK];
     AGroup 15833 1 [anon_sym_LPAREN]; AGroup 15837 1 [anon_sym_POUND];
     AGroup 15851 1 [sym_kSpecialize]; AGroup 15855 1 [sym_kIf]; AGroup 15857 1 [sym_kInherited];
     AGroup 17312 1 [sym_kString]; AGroup 3 2 syms_5; AGroup 15835 2 syms_6;
     AGroup 15839 2 syms_7; AGroup 15841 2 syms_8; AGroup 15843 2 syms_9; AGroup 15845 2 syms_10;
     AGroup 15853 2 syms_11; SGroup 9267 2 syms_12; SGroup 7556 3 syms_13;
     SGroup 10225 4 syms_14; AGroup 15847 5 syms_15; SGroup 8649 14 syms_17]);
   (225736, 20, [AGroup 5 1 [sym_ppDirective]; AGroup 15987 1 [anon_sym_LBRACK];
     AGroup 15989 1 [anon_sym_LPAREN]; AGroup 15993 1 [anon_sym_POUND];
     AGroup 16007 1 [sym_kSpecialize]; AGroup 16011 1 [sym_kIf]; AGroup 16013 1 [sym_kInherited];
     AGroup 18254 1 [sym_kString]; AGroup 3 2 syms_5; AGroup 15991 2 syms_6;
     AGroup 15995 2 syms_7; AGroup 15997 2 syms_8; AGroup 15999 2 syms_9; AGroup 16001 2 syms_10;
     AGroup 16009 2 syms_11; SGroup 9525 2 syms_12; SGroup 7769 3 syms_13; SGroup 9849 4 syms_14;
     AGroup 16003 5 syms_15; SGroup 9072 14 syms_17]);
   (225827, 20, [AGroup 5 1 [sym_ppDirective]; AGroup 15761 1 [anon_sym_LBRACK];
     AGroup 15763 1 [anon_sym_LPAREN]; AGroup 15767 1 [anon_sym_POUND];
     AGroup 15781 1 [sym_kSpecialize]; AGroup 15787 1 [sym_kInherited]; AGroup 16229 1 [sym_kIf];
     AGroup 17864 1 [sym_kString]; AGroup 3 2 syms_5; AGroup 15765 2 syms_6;
     AGroup 15769 2 syms_7; AGroup 15771 2 syms_8; AGroup 15783 2 syms_11; AGroup 16221 2 syms_9;
     AGroup 16223 2 syms_10; SGroup 9180 2 syms_12; SGroup 7467 3 syms_13; SGroup 9854 4 syms_14;
     AGroup 16225 5 syms_15; SGroup 9076 14 syms_17]);
   (225918, 20, [AGroup 5 1 [sym_ppDirective]; AGroup 15647 1 [anon_sym_LBRACK];
     AGroup 15653 1 [anon_sym_POUND]; AGroup 15667 1 [sym_kSpecialize];
     AGroup 15673 1 [sym_kInherited]; AGroup 15675 1 [sym_kString];
     AGroup 15745 1 [anon_sym_LPAREN]; AGroup 15755 1 [sym_kIf]; AGroup 3 2 syms_5;
     AGroup 15651 2 syms_6; AGroup 15655 2 syms_7; AGroup 15657 2 syms_8; AGroup 15669 2 syms_11;
     AGroup 15747 2 syms_9; AGroup 15749 2 syms_10; SGroup 8129 2 syms_12; SGroup 7100 3 syms_13;
     SGroup 9846 4 syms_14; AGroup 15751 5 syms_15; SGroup 8464 14 syms_17]);
   (226009, 20, [AGroup 5 1 [sym_ppDirective]; AGroup 15647 1 [anon_sym_LBRACK];
     AGroup 15653 1 [anon_sym_POUND]; AGroup 15667 1 [sym_kSpecialize];
     AGroup 15673 1 [sym_kInherited]; AGroup 15675 1 [sym_kString];
     AGroup 15745 1 [anon_sym_LPAREN]; AGroup 15755 1 [sym_kIf]; AGroup 3 2 syms_5;
     AGroup 15651 2 syms_6; AGroup 15655 2 syms_7; AGroup 15657 2 syms_8; AGroup 15669 2 syms_11;
     AGroup 15747 2 syms_9; AGroup 15749 2 syms_10; SGroup 8129 2 syms_12; SGroup 7100 3 syms_13;
     SGroup 9856 4 syms_14; AGroup 15751 5 syms_15; SGroup 8464 14 syms_17]);
   (226100, 20, [AGroup 5 1 [sym_ppDirective]; AGroup 15987 1 [anon_sym_LBRACK];
     AGroup 15989 1 [anon_sym_LPAREN]; AGroup 15993 1 [anon_sym_POUND];
     AGroup 16007 1 [sym_kSpecialize]; AGroup 16011 1 [sym_kIf]; AGroup 16013 1 [sym_kInherited];
     AGroup 18254 1 [sym_kString]; AGroup 3 2 syms_5; AGroup 15991 2 syms_6;
     AGroup 15995 2 syms_7; AGroup 15997 2 syms_8; AGroup 15999 2 syms_9; AGroup 16001 2 syms_10;
     AGroup 16009 2 syms_11; SGroup 9525 2 syms_12; SGroup 7769 3 syms_13;
     SGroup 10052 4 syms_14; AGroup 16003 5 syms_15; SGroup 9072 14 syms_17]);
   (226191, 20, [AGroup 5 1 [sym_ppDirective]; AGroup 15761 1 [anon_sym_LBRACK];
     AGroup 15763 1 [anon_sym_LPAREN]; AGroup 15767 1 [anon_sym_POUND];
     AGroup 15781 1 [sym_kSpecialize]; AGroup 15787 1 [sym_kInherited]; AGroup 16229 1 [sym_kIf];
     AGroup 17864 1 [sym_kString]; AGroup 3 2 syms_5; AGroup 15765 2 syms_6;
     AGroup 15769 2 syms_7; AGroup 15771 2 syms_8; AGroup 15783 2 syms_11; AGroup 16221 2 syms_9;
     AGroup 16223 2 syms_10; SGroup 9180 2 syms_12; SGroup 7467 3 syms_13; SGroup 9862 4 syms_14;
     AGroup 16225 5 syms_15; SGroup 9076 14 syms_17]);
   (226282, 20, [AGroup 5 1 [sym_ppDirective]; AGroup 15761 1 [anon_sym_LBRACK];
     AGroup 15763 1 [anon_sym_LPAREN]; AGroup 15767 1 [anon_sym_POUND];
     AGroup 15781 1 [sym_kSpecialize]; AGroup 15787 1 [sym_kInherited]; AGroup 16229 1 [sym_kIf];
     AGroup 17864 1 [sym_kString]; AGroup 3 2 syms_5; AGroup 15765 2 syms_6;
     AGroup 15769 2 syms_7; AGroup 15771 2 syms_8; AGroup 15783 2 syms_11; AGroup 16221 2 syms_9;
     AGroup 16223 2 syms_10; SGroup 9180 2 syms_12; SGroup 7467 3 syms_13; SGroup 9863 4 syms_14;
     AGroup 16225 5 syms_15; SGroup 9076 14 syms_17]);
   (226373, 20, [AGroup 5 1 [sym_ppDirective]; AGroup 16715 1 [anon_sym_LBRACK];
     AGroup 16717 1 [anon_sym_LPAREN]; AGroup 16721 1 [anon_sym_POUND];
     AGroup 16735 1 [sym_kSpecialize]; AGroup 16739 1 [sym_kIf]; AGroup 16741 1 [sym_kInherited];
     AGroup 18201 1 [sym_kString]; AGroup 3 2 syms_5; AGroup 16719 2 syms_6;
     AGroup 16723 2 syms_7; AGroup 16725 2 syms_8; AGroup 16727 2 syms_9; AGroup 16729 2 syms_10;
     AGroup 16737 2 syms_11; SGroup 7901 2 syms_12; SGroup 7014 3 syms_13; SGroup 8257 4 syms_14;
     AGroup 16731 5 syms_15; SGroup 7757 14 syms_17]);
   (226464, 20, [AGroup 5 1 [sym_ppDirective]; AGroup 15831 1 [anon_sym_LBRACK];
     AGroup 15833 1 [anon_sym_LPAREN]; AGroup 15837 1 [anon_sym_POUND];
     AGroup 15851 1 [sym_kSpecialize]; AGroup 15855 1 [sym_kIf]; AGroup 15857 1 [sym_kInherited];
     AGroup 17312 1 [sym_kString]; AGroup 3 2 syms_5; AGroup 15835 2 syms_6;
     AGroup 15839 2 syms_7; AGroup 15841 2 syms_8; AGroup 15843 2 syms_9; AGroup 15845 2 syms_10;
     AGroup 15853 2 syms_11; SGroup 9267 2 syms_12; SGroup 7556 3 syms_13;
     SGroup 10241 4 syms_14; AGroup 15847 5 syms_15; SGroup 8649 14 syms_17]);
   (226555, 20, [AGroup 5 1 [sym_ppDirective]; AGroup 15987 1 [anon_sym_LBRACK];
     AGroup 15989 1 [anon_sym_LPAREN]; AGroup 15993 1 [anon_sym_POUND];
     AGroup 16007 1 [sym_kSpecialize]; AGroup 16011 1 [sym_kIf]; AGroup 16013 1 [sym_kInherited];
     AGroup 18254 1 [sym_kString]; AGroup 3 2 syms_5; AGroup 15991 2 syms_6;
     AGroup 15995 2 syms_7; AGroup 15997 2 syms_8; AGroup 15999 2 syms_9; AGroup 16001 2 syms_10;
     AGroup 16009 2 syms_11; SGroup 9525 2 syms_12; SGroup 7769 3 syms_13; SGroup 9868 4 syms_14;
     AGroup 16003 5 syms_15; SGroup 9072 14 syms_17]);
   (226646, 20, [AGroup 5 1 [sym_ppDirective]; AGroup 15761 1 [anon_sym_LBRACK];
     AGroup 15763 1 [anon_sym_LPAREN]; AGroup 15767 1 [anon_sym_POUND];
     AGroup 15781 1 [sym_kSpecialize]; AGroup 15787 1 [sym_kInherited]; AGroup 16229 1 [sym_kIf];
     AGroup 17864 1 [sym_kString]; AGroup 3 2 syms_5; AGroup 15765 2 syms_6;
     AGroup 15769 2 syms_7; AGroup 15771 2 syms_8; AGroup 15783 2 syms_11; AGroup 16221 2 syms_9;
     AGroup 16223 2 syms_10; SGroup 9180 2 syms_12; SGroup 7467 3 syms_13; SGroup 9873 4 syms_14;
     AGroup 16225 5 syms_15; SGroup 9076 14 syms_17]);
   (226737, 20, [AGroup 5 1 [sym_ppDirective]; AGroup 14735 1 [anon_sym_LBRACK];
     AGroup 14737 1 [anon_sym_LPAREN]; AGroup 14741 1 [anon_sym_POUND];
     AGroup 14755 1 [sym_kSpecialize]; AGroup 14759 1 [sym_kIf]; AGroup 14761 1 [sym_kInherited];
     AGroup 14763 1 [sym_kString]; AGroup 3 2 syms_5; AGroup 14739 2 syms_6;
     AGroup 14743 2 syms_7; AGroup 14745 2 syms_8; AGroup 14749 2 syms_9; AGroup 14751 2 syms_10;
     AGroup 14757 2 syms_11; SGroup 3618 2 syms_12; SGroup 2833 3 syms_13; SGroup 3447 4 syms_14;
     AGroup 14753 5 syms_15; SGroup 3466 14 syms_17]);
   (226828, 20, [AGroup 5 1 [sym_ppDirective]; AGroup 15647 1 [anon_sym_LBRACK];
     AGroup 15653 1 [anon_sym_POUND]; AGroup 15667 1 [sym_kSpecialize];
     AGroup 15673 1 [sym_kInherited]; AGroup 15675 1 [sym_kString];
     AGroup 15745 1 [anon_sym_LPAREN]; AGroup 15755 1 [sym_kIf]; AGroup 3 2 syms_5;
     AGroup 15651 2 syms_6; AGroup 15655 2 syms_7; AGroup 15657 2 syms_8; AGroup 15669 2 syms_11;
     AGroup 15747 2 syms_9; AGroup 15749 2 syms_10; SGroup 8129 2 syms_12; SGroup 7100 3 syms_13;
     SGroup 9875 4 syms_14; AGroup 15751 5 syms_15; SGroup 8464 14 syms_17]);
   (226919, 31, [AGroup 5 1 [sym_ppDirective]; AGroup 13347 1 [anon_sym_LBRACK];
     AGroup 13351 1 [aux_sym_ppUsesBlock_token1]; AGroup 13365 1 [sym_identifier];
     AGroup 13367 1 [sym_kGeneric]; AGroup 13369 1 [sym_kOperator]; AGroup 13373 1 [sym_kStrict];
     AGroup 13377 1 [sym_kCase]; AGroup 13379 1 [sym_kClass]; AGroup 13391 1 [sym_kProperty];
     AGroup 13395 1 [sym_kType]; AGroup 18550 1 [anon_sym_SEMI]; AGroup 18552 1 [sym_kEnd];
     SGroup 2 1 [sym__ppIf]; SGroup 6354 1 [sym__visibility]; SGroup 9779 1 [sym_ppBlock];
     SGroup 9835 1 [sym__declOperator]; SGroup 10247 1 [sym__declProc];
     SGroup 10617 1 [sym_rttiAttributes]; SGroup 10730 1 [aux_sym_rttiAttributes_repeat2];
     SGroup 13987 1 [aux_sym_genericArg_repeat1]; SGroup 14434 1 [sym_declVariant];
     SGroup 14771 1 [sym__declClass]; AGroup 3 2 syms_5; AGroup 13381 2 syms_65;
     AGroup 13393 2 syms_66; SGroup 5685 2 syms_68; SGroup 10490 3 syms_69;
     AGroup 13383 4 syms_3; AGroup 13371 6 syms_70; SGroup 6150 6 syms_71]);
   (227032, 20, [AGroup 5 1 [sym_ppDirective]; AGroup 15761 1 [anon_sym_LBRACK];
     AGroup 15763 1 [anon_sym_LPAREN]; AGroup 15767 1 [anon_sym_POUND];
     AGroup 15781 1 [sym_kSpecialize]; AGroup 15787 1 [sym_kInherited]; AGroup 16229 1 [sym_kIf];
     AGroup 17864 1 [sym_kString]; AGroup 3 2 syms_5; AGroup 15765 2 syms_6;
     AGroup 15769 2 syms_7; AGroup 15771 2 syms_8; AGroup 15783 2 syms_11; AGroup 16221 2 syms_9;
     AGroup 16223 2 syms_10; SGroup 9180 2 syms_12; SGroup 7467 3 syms_13; SGroup 9885 4 syms_14;
     AGroup 16225 5 syms_15; SGroup 9076 14 syms_17]);
   (227123, 20, [AGroup 5 1 [sym_ppDirective]; AGroup 15761 1 [anon_sym_LBRACK];
     AGroup 15763 1 [anon_sym_LPAREN]; AGroup 15767 1 [anon_sym_POUND];
     AGroup 15781 1 [sym_kSpecialize]; AGroup 15787 1 [sym_kInherited]; AGroup 16229 1 [sym_kIf];
     AGroup 17864 1 [sym_kString]; AGroup 3 2 syms_5; AGroup 15765 2 syms_6;
     AGroup 15769 2 syms_7; AGroup 15771 2 syms_8; AGroup 15783 2 syms_11; AGroup 16221 2 syms_9;
     AGroup 16223 2 syms_10; SGroup 9180 2 syms_12; SGroup 7467 3 syms_13; SGroup 9886 4 syms_14;
     AGroup 16225 5 syms_15; SGroup 9076 14 syms_17]);
   (227214, 20, [AGroup 5 1 [sym_ppDirective]; AGroup 16715 1 [anon_sym_LBRACK];
     AGroup 16717 1 [anon_sym_LPAREN]; AGroup 16721 1 [anon_sym_POUND];
     AGroup 16735 1 [sym_kSpecialize]; AGroup 16739 1 [sym_kIf]; AGroup 16741 1 [sym_kInherited];
     AGroup 18201 1 [sym_kString]; AGroup 3 2 syms_5; AGroup 16719 2 syms_6;
     AGroup 16723 2 syms_7; AGroup 16725 2 syms_8; AGroup 16727 2 syms_9; AGroup 16729 2 syms_10;
     AGroup 16737 2 syms_11; SGroup 7901 2 syms_12; SGroup 7014 3 syms_13; SGroup 8263 4 syms_14;
     AGroup 16731 5 syms_15; SGroup 7757 14 syms_17]);
   (227305, 20, [AGroup 5 1 [sym_ppDirective]; AGroup 15831 1 [anon_sym_LBRACK];
     AGroup 15833 1 [anon_sym_LPAREN]; AGroup 15837 1 [anon_sym_POUND];
     AGroup 15851 1 [sym_kSpecialize]; AGroup 15855 1 [sym_kIf]; AGroup 15857 1 [sym_kInherited];
     AGroup 17312 1 [sym_kString]; AGroup 3 2 syms_5; AGroup 15835 2 syms_6;
     AGroup 15839 2 syms_7; AGroup 15841 2 syms_8; AGroup 15843 2 syms_9; AGroup 15845 2 syms_10;
     AGroup 15853 2 syms_11; SGroup 9267 2 syms_12; SGroup 7556 3 syms_13; SGroup 9844 4 syms_14;
     AGroup 15847 5 syms_15; SGroup 8649 14 syms_17]);
   (227396, 20, [AGroup 5 1 [sym_ppDirective]; AGroup 15987 1 [anon_sym_LBRACK];
     AGroup 15989 1 [anon_sym_LPAREN]; AGroup 15993 1 [anon_sym_POUND];
     AGroup 16007 1 [sym_kSpecialize]; AGroup 16011 1 [sym_kIf]; AGroup 16013 1 [sym_kInherited];
     AGroup 18254 1 [sym_kString]; AGroup 3 2 syms_5; AGroup 15991 2 syms_6;
     AGroup 15995 2 syms_7; AGroup 15997 2 syms_8; AGroup 15999 2 syms_9; AGroup 16001 2 syms_10;
     AGroup 16009 2 syms_11; SGroup 9525 2 syms_12; SGroup 7769 3 syms_13; SGroup 9897 4 syms_14;
     AGroup 16003 5 syms_15; SGroup 9072 14 syms_17]);
   (227487, 20, [AGroup 5 1 [sym_ppDirective]; AGroup 15647 1 [anon_sym_LBRACK];
     AGroup 15653 1 [anon_sym_POUND]; AGroup 15667 1 [sym_kSpecialize];
     AGroup 15673 1 [sym_kInherited]; AGroup 15675 1 [sym_kString];
     AGroup 15745 1 [anon_sym_LPAREN]; AGroup 15755 1 [sym_kIf]; AGroup 3 2 syms_5;
     AGroup 15651 2 syms_6; AGroup 15655 2 syms_7; AGroup 15657 2 syms_8; AGroup 15669 2 syms_11;
     AGroup 15747 2 syms_9; AGroup 15749 2 syms_10; SGroup 8129 2 syms_12; SGroup 7100 3 syms_13;
     SGroup 9899 4 syms_14; AGroup 15751 5 syms_15; SGroup 8464 14 syms_17]);
   (227578, 20, [AGroup 5 1 [sym_ppDirective]; AGroup 15831 1 [anon_sym_LBRACK];
     AGroup 15833 1 [anon_sym_LPAREN]; AGroup 15837 1 [anon_sym_POUND];
     AGroup 15851 1 [sym_kSpecialize]; AGroup 15855 1 [sym_kIf]; AGroup 15857 1 [sym_kInherited];
     AGroup 17312 1 [sym_kString]; AGroup 3 2 syms_5; AGroup 15835 2 syms_6;
     AGroup 15839 2 syms_7; AGroup 15841 2 syms_8; AGroup 15843 2 syms_9; AGroup 15845 2 syms_10;
     AGroup 15853 2 syms_11; SGroup 9267 2 syms_12; SGroup 7556 3 syms_13; SGroup 9864 4 syms_14;
     AGroup 15847 5 syms_15; SGroup 8649 14 syms_17]);
   (227669, 20, [AGroup 5 1 [sym_ppDirective]; AGroup 15987 1 [anon_sym_LBRACK];
     AGroup 15989 1 [anon_sym_LPAREN]; AGroup 15993 1 [anon_sym_POUND];
     AGroup 16007 1 [sym_kSpecialize]; AGroup 16011 1 [sym_kIf]; AGroup 16013 1 [sym_kInherited];
     AGroup 18254 1 [sym_kString]; AGroup 3 2 syms_5; AGroup 15991 2 syms_6;
     AGroup 15995 2 syms_7; AGroup 15997 2 syms_8; AGroup 15999 2 syms_9; AGroup 16001 2 syms_10;
     AGroup 16009 2 syms_11; SGroup 9525 2 syms_12; SGroup 7769 3 syms_13; SGroup 9907 4 syms_14;
     AGroup 16003 5 syms_15; SGroup 9072 14 syms_17]);
   (227760, 20, [AGroup 5 1 [sym_ppDirective]; AGroup 15647 1 [anon_sym_LBRACK];
     AGroup 15653 1 [anon_sym_POUND]; AGroup 15667 1 [sym_kSpecialize];
     AGroup 15673 1 [sym_kInherited]; AGroup 15675 1 [sym_kString];
     AGroup 15745 1 [anon_sym_LPAREN]; AGroup 15755 1 [sym_kIf]; AGroup 3 2 syms_5;
     AGroup 15651 2 syms_6; AGroup 15655 2 syms_7; AGroup 15657 2 syms_8; AGroup 15669 2 syms_11;
     AGroup 15747 2 syms_9; AGroup 15749 2 syms_10; SGroup 8129 2 syms_12; SGroup 7100 3 syms_13;
     SGroup 9912 4 syms_14; AGroup 15751 5 syms_15; SGroup 8464 14 syms_17]);
   (227851, 20, [AGroup 5 1 [sym_ppDirective]; AGroup 14821 1 [anon_sym_LBRACK];
     AGroup 14823 1 [anon_sym_LPAREN]; AGroup 14827 1 [anon_sym_POUND];
     AGroup 14839 1 [sym_kSpecialize]; AGroup 14843 1 [sym_kIf]; AGroup 14845 1 [sym_kInherited];
     AGroup 14847 1 [sym_kString]; AGroup 3 2 syms_5; AGroup 14825 2 syms_6;
     AGroup 14829 2 syms_7; AGroup 14831 2 syms_8; AGroup 14833 2 syms_9; AGroup 14835 2 syms_10;
     AGroup 14841 2 syms_11; SGroup 5943 2 syms_12; SGroup 3840 3 syms_13; SGroup 5820 4 syms_14;
     AGroup 14837 5 syms_15; SGroup 5828 14 syms_17]);
   (227942, 20, [AGroup 5 1 [sym_ppDirective]; AGroup 14821 1 [anon_sym_LBRACK];
     AGroup 14823 1 [anon_sym_LPAREN]; AGroup 14827 1 [anon_sym_POUND];
     AGroup 14839 1 [sym_kSpecialize]; AGroup 14843 1 [sym_kIf]; AGroup 14845 1 [sym_kInherited];
     AGroup 14847 1 [sym_kString]; AGroup 3 2 syms_5; AGroup 14825 2 syms_6;
     AGroup 14829 2 syms_7; AGroup 14831 2 syms_8; AGroup 14833 2 syms_9; AGroup 14835 2 syms_10;
     AGroup 14841 2 syms_11; SGroup 5943 2 syms_12; SGroup 3840 3 syms_13; SGroup 5826 4 syms_14;
     AGroup 14837 5 syms_15; SGroup 5828 14 syms_17]);
   (228033, 20, [AGroup 5 1 [sym_ppDirective]; AGroup 15831 1 [anon_sym_LBRACK];
     AGroup 15833 1 [anon_sym_LPAREN]; AGroup 15837 1 [anon_sym_POUND];
     AGroup 15851 1 [sym_kSpecialize]; AGroup 15855 1 [sym_kIf]; AGroup 15857 1 [sym_kInherited];
     AGroup 17312 1 [sym_kString]; AGroup 3 2 syms_5; AGroup 15835 2 syms_6;
     AGroup 15839 2 syms_7; AGroup 15841 2 syms_8; AGroup 15843 2 syms_9; AGroup 15845 2 syms_10;
     AGroup 15853 2 syms_11; SGroup 9267 2 syms_12; SGroup 7556 3 syms_13; SGroup 9890 4 syms_14;
     AGroup 15847 5 syms_15; SGroup 8649 14 syms_17]);
   (228124, 20, [AGroup 5 1 [sym_ppDirective]; AGroup 15987 1 [anon_sym_LBRACK];
     AGroup 15989 1 [anon_sym_LPAREN]; AGroup 15993 1 [anon_sym_POUND];
     AGroup 16007 1 [sym_kSpecialize]; AGroup 16011 1 [sym_kIf]; AGroup 16013 1 [sym_kInherited];
     AGroup 18254 1 [sym_kString]; AGroup 3 2 syms_5; AGroup 15991 2 syms_6;
     AGroup 15995 2 syms_7; AGroup 15997 2 syms_8; AGroup 15999 2 syms_9; AGroup 16001 2 syms_10;
     AGroup 16009 2 syms_11; SGroup 9525 2 syms_12; SGroup 7769 3 syms_13; SGroup 9922 4 syms_14;
     AGroup 16003 5 syms_15; SGroup 9072 14 syms_17]);
   (228215, 20, [AGroup 5 1 [sym_ppDirective]; AGroup 15647 1 [anon_sym_LBRACK];
     AGroup 15653 1 [anon_sym_POUND]; AGroup 15667 1 [sym_kSpecialize];
     AGroup 15673 1 [sym_kInherited]; AGroup 15675 1 [sym_kString];
     AGroup 15745 1 [anon_sym_LPAREN]; AGroup 15755 1 [sym_kIf]; AGroup 3 2 syms_5;
     AGroup 15651 2 syms_6; AGroup 15655 2 syms_7; AGroup 15657 2 syms_8; AGroup 15669 2 syms_11;
     AGroup 15747 2 syms_9; AGroup 15749 2 syms_10; SGroup 8129 2 syms_12; SGroup 7100 3 syms_13;
     SGroup 9923 4 syms_14; AGroup 15751 5 syms_15; SGroup 8464 14 syms_17]);
   (228306, 20, [AGroup 5 1 [sym_ppDirective]; AGroup 14821 1 [anon_sym_LBRACK];
     AGroup 14823 1 [anon_sym_LPAREN]; AGroup 14827 1 [anon_sym_POUND];
     AGroup 14839 1 [sym_kSpecialize]; AGroup 14843 1 [sym_kIf]; AGroup 14845 1 [sym_kInherited];
     AGroup 14847 1 [sym_kString]; AGroup 3 2 syms_5; AGroup 14825 2 syms_6;
     AGroup 14829 2 syms_7; AGroup 14831 2 syms_8; AGroup 14833 2 syms_9; AGroup 14835 2 syms_10;
     AGroup 14841 2 syms_11; SGroup 5943 2 syms_12; SGroup 3840 3 syms_13; SGroup 5829 4 syms_14;
     AGroup 14837 5 syms_15; SGroup 5828 14 syms_17]);
   (228397, 21, [AGroup 5 1 [sym_ppDirective]; AGroup 14821 1 [anon_sym_LBRACK];
     AGroup 14823 1 [anon_sym_LPAREN]; AGroup 14827 1 [anon_sym_POUND]; AGroup 14835 1 [sym_kAt];
     AGroup 14839 1 [sym_kSpecialize]; AGroup 14843 1 [sym_kIf]; AGroup 14845 1 [sym_kInherited];
     AGroup 14847 1 [sym_kString]; AGroup 18554 1 [sym_kNot]; AGroup 3 2 syms_5;
     AGroup 14825 2 syms_6; AGroup 14829 2 syms_7; AGroup 14831 2 syms_8; AGroup 14833 2 syms_9;
     AGroup 14841 2 syms_11; SGroup 5943 2 syms_12; SGroup 3840 3 syms_13; SGroup 5829 4 syms_14;
     AGroup 14837 5 syms_15; SGroup 5828 14 syms_17]);
   (228490, 20, [AGroup 5 1 [sym_ppDirective]; AGroup 15831 1 [anon_sym_LBRACK];
     AGroup 15833 1 [anon_sym_LPAREN]; AGroup 15837 1 [anon_sym_POUND];
     AGroup 15851 1 [sym_kSpecialize]; AGroup 15855 1 [sym_kIf]; AGroup 15857 1 [sym_kInherited];
     AGroup 17312 1 [sym_kString]; AGroup 3 2 syms_5; AGroup 15835 2 syms_6;
     AGroup 15839 2 syms_7; AGroup 15841 2 syms_8; AGroup 15843 2 syms_9; AGroup 15845 2 syms_10;
     AGroup 15853 2 syms_11; SGroup 9267 2 syms_12; SGroup 7556 3 syms_13; SGroup 9903 4 syms_14;
     AGroup 15847 5 syms_15; SGroup 8649 14 syms_17]);
   (228581, 20, [AGroup 5 1 [sym_ppDirective]; AGroup 15987 1 [anon_sym_LBRACK];
     AGroup 15989 1 [anon_sym_LPAREN]; AGroup 15993 1 [anon_sym_POUND];
     AGroup 16007 1 [sym_kSpecialize]; AGroup 16011 1 [sym_kIf]; AGroup 16013 1 [sym_kInherited];
     AGroup 18254 1 [sym_kString]; AGroup 3 2 syms_5; AGroup 15991 2 syms_6;
     AGroup 15995 2 syms_7; AGroup 15997 2 syms_8; AGroup 15999 2 syms_9; AGroup 16001 2 syms_10;
     AGroup 16009 2 syms_11; SGroup 9525 2 syms_12; SGroup 7769 3 syms_13; SGroup 9936 4 syms_14;
     AGroup 16003 5 syms_15; SGroup 9072 14 syms_17]);
   (228672, 20, [AGroup 5 1 [sym_ppDirective]; AGroup 15647 1 [anon_sym_LBRACK];
     AGroup 15653 1 [anon_sym_POUND]; AGroup 15667 1 [sym_kSpecialize];
     AGroup 15673 1 [sym_kInherited]; AGroup 15675 1 [sym_kString];
     AGroup 15745 1 [anon_sym_LPAREN]; AGroup 15755 1 [sym_kIf]; AGroup 3 2 syms_5;
     AGroup 15651 2 syms_6; AGroup 15655 2 syms_7; AGroup 15657 2 syms_8; AGroup 15669 2 syms_11;
     AGroup 15747 2 syms_9; AGroup 15749 2 syms_10; SGroup 8129 2 syms_12; SGroup 7100 3 syms_13;
     SGroup 9942 4 syms_14; AGroup 15751 5 syms_15; SGroup 8464 14 syms_17]);
   (228763, 20, [AGroup 5 1 [sym_ppDirective]; AGroup 14821 1 [anon_sym_LBRACK];
     AGroup 14823 1 [anon_sym_LPAREN]; AGroup 14827 1 [anon_sym_POUND];
     AGroup 14839 1 [sym_kSpecialize]; AGroup 14843 1 [sym_kIf]; AGroup 14845 1 [sym_kInherited];
     AGroup 14847 1 [sym_kString]; AGroup 3 2 syms_5; AGroup 14825 2 syms_6;
     AGroup 14829 2 syms_7; AGroup 14831 2 syms_8; AGroup 14833 2 syms_9; AGroup 14835 2 syms_10;
     AGroup 14841 2 syms_11; SGroup 5943 2 syms_12; SGroup 3840 3 syms_13; SGroup 5835 4 syms_14;
     AGroup 14837 5 syms_15; SGroup 5828 14 syms_17]);
   (228854, 20, [AGroup 5 1 [sym_ppDirective]; AGroup 15831 1 [anon_sym_LBRACK];
     AGroup 15833 1 [anon_sym_LPAREN]; AGroup 15837 1 [anon_sym_POUND];
     AGroup 15851 1 [sym_kSpecialize]; AGroup 15855 1 [sym_kIf]; AGroup 15857 1 [sym_kInherited];
     AGroup 17312 1 [sym_kString]; AGroup 3 2 syms_5; AGroup 15835 2 syms_6;
     AGroup 15839 2 syms_7; AGroup 15841 2 syms_8; AGroup 15843 2 syms_9; AGroup 15845 2 syms_10;
     AGroup 15853 2 syms_11; SGroup 9267 2 syms_12; SGroup 7556 3 syms_13; SGroup 9918 4 syms_14;
     AGroup 15847 5 syms_15; SGroup 8649 14 syms_17]);
   (228945, 20, [AGroup 5 1 [sym_ppDirective]; AGroup 15987 1 [anon_sym_LBRACK];
     AGroup 15989 1 [anon_sym_LPAREN]; AGroup 15993 1 [anon_sym_POUND];
     AGroup 16007 1 [sym_kSpecialize]; AGroup 16011 1 [sym_kIf]; AGroup 16013 1 [sym_kInherited];
     AGroup 18254 1 [sym_kString]; AGroup 3 2 syms_5; AGroup 15991 2 syms_6;
     AGroup 15995 2 syms_7; AGroup 15997 2 syms_8; AGroup 15999 2 syms_9; AGroup 16001 2 syms_10;
     AGroup 16009 2 syms_11; SGroup 9525 2 syms_12; SGroup 7769 3 syms_13; SGroup 9949 4 syms_14;
     AGroup 16003 5 syms_15; SGroup 9072 14 syms_17]);
   (229036, 20, [AGroup 5 1 [sym_ppDirective]; AGroup 15647 1 [anon_sym_LBRACK];
     AGroup 15653 1 [anon_sym_POUND]; AGroup 15667 1 [sym_kSpecialize];
     AGroup 15673 1 [sym_kInherited]; AGroup 15675 1 [sym_kString];
     AGroup 15745 1 [anon_sym_LPAREN]; AGroup 15755 1 [sym_kIf]; AGroup 3 2 syms_5;
     AGroup 15651 2 syms_6; AGroup 15655 2 syms_7; AGroup 15657 2 syms_8; AGroup 15669 2 syms_11;
     AGroup 15747 2 syms_9; AGroup 15749 2 syms_10; SGroup 8129 2 syms_12; SGroup 7100 3 syms_13;
     SGroup 9951 4 syms_14; AGroup 15751 5 syms_15; SGroup 8464 14 syms_17]);
   (229127, 20, [AGroup 5 1 [sym_ppDirective]; AGroup 14821 1 [anon_sym_LBRACK];
     AGroup 14823 1 [anon_sym_LPAREN]; AGroup 14827 1 [anon_sym_POUND];
     AGroup 14839 1 [sym_kSpecialize]; AGroup 14845 1 [sym_kInherited];
     AGroup 14847 1 [sym_kString]; AGroup 15755 1 [sym_kIf]; AGroup 3 2 syms_5;
     AGroup 14825 2 syms_6; AGroup 14829 2 syms_7; AGroup 14831 2 syms_8; AGroup 14841 2 syms_11;
     AGroup 15747 2 syms_9; AGroup 15749 2 syms_10; SGroup 5943 2 syms_12; SGroup 3840 3 syms_13;
     SGroup 10324 4 syms_14; AGroup 18556 5 syms_15; SGroup 5843 14 syms_17]);
   (229218, 20, [AGroup 5 1 [sym_ppDirective]; AGroup 15831 1 [anon_sym_LBRACK];
     AGroup 15833 1 [anon_sym_LPAREN]; AGroup 15837 1 [anon_sym_POUND];
     AGroup 15851 1 [sym_kSpecialize]; AGroup 15855 1 [sym_kIf]; AGroup 15857 1 [sym_kInherited];
     AGroup 17312 1 [sym_kString]; AGroup 3 2 syms_5; AGroup 15835 2 syms_6;
     AGroup 15839 2 syms_7; AGroup 15841 2 syms_8; AGroup 15843 2 syms_9; AGroup 15845 2 syms_10;
     AGroup 15853 2 syms_11; SGroup 9267 2 syms_12; SGroup 7556 3 syms_13; SGroup 9930 4 syms_14;
     AGroup 15847 5 syms_15; SGroup 8649 14 syms_17]);
   (229309, 20, [AGroup 5 1 [sym_ppDirective]; AGroup 15987 1 [anon_sym_LBRACK];
     AGroup 15989 1 [anon_sym_LPAREN]; AGroup 15993 1 [anon_sym_POUND];
     AGroup 16007 1 [sym_kSpecialize]; AGroup 16011 1 [sym_kIf]; AGroup 16013 1 [sym_kInherited];
     AGroup 18254 1 [sym_kString]; AGroup 3 2 syms_5; AGroup 15991 2 syms_6;
     AGroup 15995 2 syms_7; AGroup 15997 2 syms_8; AGroup 15999 2 syms_9; AGroup 16001 2 syms_10;
     AGroup 16009 2 syms_11; SGroup 9525 2 syms_12; SGroup 7769 3 syms_13; SGroup 9959 4 syms_14;
     AGroup 16003 5 syms_15; SGroup 9072 14 syms_17])
  ].

Definition small_part3 : list small_run :=
  small_runs_4359
  ++ small_runs_4459
  ++ small_runs_4559
  ++ small_runs_4659
  ++ small_runs_4759
  ++ small_runs_4859
  ++ small_runs_4959
  ++ small_runs_5059
  ++ small_runs_5159.
