(* ===== verification/SmallTable4.v ===== *)
(** * The compressed parse table of [parser.c], states 5259 to 6658

    The record of each small state in [ts_small_parse_table], as the source
    writes it: its index in the array, the number of its groups, and the groups
    in their order, each with its value, the number of its symbols and the
    symbols. *)

From S2P Require Import Prelude.
From S2P Require Import Symbols.
From S2P Require Import ParseTypes.
From S2P Require Import SmallSymbols.

(** States 5259 to 5358. *)
Definition small_runs_5259 : list small_run :=
  [
   (229400, 20, [AGroup 5 1 [sym_ppDirective]; AGroup 15647 1 [anon_sym_LBRACK];
     AGroup 15653 1 [anon_sym_POUND]; AGroup 15667 1 [sym_kSpecialize];
     AGroup 15673 1 [sym_kInherited]; AGroup 15675 1 [sym_kString];
     AGroup 15745 1 [anon_sym_LPAREN]; AGroup 15755 1 [sym_kIf]; AGroup 3 2 syms_5;
     AGroup 15651 2 syms_6; AGroup 15655 2 syms_7; AGroup 15657 2 syms_8; AGroup 15669 2 syms_11;
     AGroup 15747 2 syms_9; AGroup 15749 2 syms_10; SGroup 8129 2 syms_12; SGroup 7100 3 syms_13;
     SGroup 9961 4 syms_14; AGroup 15751 5 syms_15; SGroup 8464 14 syms_17]);
   (229491, 20, [AGroup 5 1 [sym_ppDirective]; AGroup 15831 1 [anon_sym_LBRACK];
     AGroup 15833 1 [anon_sym_LPAREN]; AGroup 15837 1 [anon_sym_POUND];
     AGroup 15851 1 [sym_kSpecialize]; AGroup 15855 1 [sym_kIf]; AGroup 15857 1 [sym_kInherited];
     AGroup 17312 1 [sym_kString]; AGroup 3 2 syms_5; AGroup 15835 2 syms_6;
     AGroup 15839 2 syms_7; AGroup 15841 2 syms_8; AGroup 15843 2 syms_9; AGroup 15845 2 syms_10;
     AGroup 15853 2 syms_11; SGroup 9267 2 syms_12; SGroup 7556 3 syms_13; SGroup 9947 4 syms_14;
     AGroup 15847 5 syms_15; SGroup 8649 14 syms_17]);
   (229582, 20, [AGroup 5 1 [sym_ppDirective]; AGroup 15987 1 [anon_sym_LBRACK];
     AGroup 15989 1 [anon_sym_LPAREN]; AGroup 15993 1 [anon_sym_POUND];
     AGroup 16007 1 [sym_kSpecialize]; AGroup 16011 1 [sym_kIf]; AGroup 16013 1 [sym_kInherited];
     AGroup 18254 1 [sym_kString]; AGroup 3 2 syms_5; AGroup 15991 2 syms_6;
     AGroup 15995 2 syms_7; AGroup 15997 2 syms_8; AGroup 15999 2 syms_9; AGroup 16001 2 syms_10;
     AGroup 16009 2 syms_11; SGroup 9525 2 syms_12; SGroup 7769 3 syms_13; SGroup 9968 4 syms_14;
     AGroup 16003 5 syms_15; SGroup 9072 14 syms_17]);
   (229673, 20, [AGroup 5 1 [sym_ppDirective]; AGroup 15647 1 [anon_sym_LBRACK];
     AGroup 15653 1 [anon_sym_POUND]; AGroup 15667 1 [sym_kSpecialize];
     AGroup 15673 1 [sym_kInherited]; AGroup 15675 1 [sym_kString];
     AGroup 15745 1 [anon_sym_LPAREN]; AGroup 15755 1 [sym_kIf]; AGroup 3 2 syms_5;
     AGroup 15651 2 syms_6; AGroup 15655 2 syms_7; AGroup 15657 2 syms_8; AGroup 15669 2 syms_11;
     AGroup 15747 2 syms_9; AGroup 15749 2 syms_10; SGroup 8129 2 syms_12; SGroup 7100 3 syms_13;
     SGroup 9972 4 syms_14; AGroup 15751 5 syms_15; SGroup 8464 14 syms_17]);
   (229764, 20, [AGroup 5 1 [sym_ppDirective]; AGroup 15831 1 [anon_sym_LBRACK];
     AGroup 15833 1 [anon_sym_LPAREN]; AGroup 15837 1 [anon_sym_POUND];
     AGroup 15851 1 [sym_kSpecialize]; AGroup 15855 1 [sym_kIf]; AGroup 15857 1 [sym_kInherited];
     AGroup 17312 1 [sym_kString]; AGroup 3 2 syms_5; AGroup 15835 2 syms_6;
     AGroup 15839 2 syms_7; AGroup 15841 2 syms_8; AGroup 15843 2 syms_9; AGroup 15845 2 syms_10;
     AGroup 15853 2 syms_11; SGroup 9267 2 syms_12; SGroup 7556 3 syms_13; SGroup 9952 4 syms_14;
     AGroup 15847 5 syms_15; SGroup 8649 14 syms_17]);
   (229855, 20, [AGroup 5 1 [sym_ppDirective]; AGroup 15987 1 [anon_sym_LBRACK];
     AGroup 15989 1 [anon_sym_LPAREN]; AGroup 15993 1 [anon_sym_POUND];
     AGroup 16007 1 [sym_kSpecialize]; AGroup 16011 1 [sym_kIf]; AGroup 16013 1 [sym_kInherited];
     AGroup 18254 1 [sym_kString]; AGroup 3 2 syms_5; AGroup 15991 2 syms_6;
     AGroup 15995 2 syms_7; AGroup 15997 2 syms_8; AGroup 15999 2 syms_9; AGroup 16001 2 syms_10;
     AGroup 16009 2 syms_11; SGroup 9525 2 syms_12; SGroup 7769 3 syms_13; SGroup 9979 4 syms_14;
     AGroup 16003 5 syms_15; SGroup 9072 14 syms_17]);
   (229946, 20, [AGroup 5 1 [sym_ppDirective]; AGroup 15647 1 [anon_sym_LBRACK];
     AGroup 15653 1 [anon_sym_POUND]; AGroup 15667 1 [sym_kSpecialize];
     AGroup 15673 1 [sym_kInherited]; AGroup 15675 1 [sym_kString];
     AGroup 15745 1 [anon_sym_LPAREN]; AGroup 15755 1 [sym_kIf]; AGroup 3 2 syms_5;
     AGroup 15651 2 syms_6; AGroup 15655 2 syms_7; AGroup 15657 2 syms_8; AGroup 15669 2 syms_11;
     AGroup 15747 2 syms_9; AGroup 15749 2 syms_10; SGroup 8129 2 syms_12; SGroup 7100 3 syms_13;
     SGroup 9981 4 syms_14; AGroup 15751 5 syms_15; SGroup 8464 14 syms_17]);
   (230037, 20, [AGroup 5 1 [sym_ppDirective]; AGroup 15831 1 [anon_sym_LBRACK];
     AGroup 15833 1 [anon_sym_LPAREN]; AGroup 15837 1 [anon_sym_POUND];
     AGroup 15851 1 [sym_kSpecialize]; AGroup 15855 1 [sym_kIf]; AGroup 15857 1 [sym_kInherited];
     AGroup 17312 1 [sym_kString]; AGroup 3 2 syms_5; AGroup 15835 2 syms_6;
     AGroup 15839 2 syms_7; AGroup 15841 2 syms_8; AGroup 15843 2 syms_9; AGroup 15845 2 syms_10;
     AGroup 15853 2 syms_11; SGroup 9267 2 syms_12; SGroup 7556 3 syms_13; SGroup 9965 4 syms_14;
     AGroup 15847 5 syms_15; SGroup 8649 14 syms_17]);
   (230128, 20, [AGroup 5 1 [sym_ppDirective]; AGroup 15987 1 [anon_sym_LBRACK];
     AGroup 15989 1 [anon_sym_LPAREN]; AGroup 15993 1 [anon_sym_POUND];
     AGroup 16007 1 [sym_kSpecialize]; AGroup 16011 1 [sym_kIf]; AGroup 16013 1 [sym_kInherited];
     AGroup 18254 1 [sym_kString]; AGroup 3 2 syms_5; AGroup 15991 2 syms_6;
     AGroup 15995 2 syms_7; AGroup 15997 2 syms_8; AGroup 15999 2 syms_9; AGroup 16001 2 syms_10;
     AGroup 16009 2 syms_11; SGroup 9525 2 syms_12; SGroup 7769 3 syms_13; SGroup 9991 4 syms_14;
     AGroup 16003 5 syms_15; SGroup 9072 14 syms_17]);
   (230219, 20, [AGroup 5 1 [sym_ppDirective]; AGroup 15647 1 [anon_sym_LBRACK];
     AGroup 15653 1 [anon_sym_POUND]; AGroup 15667 1 [sym_kSpecialize];
     AGroup 15673 1 [sym_kInherited]; AGroup 15675 1 [sym_kString];
     AGroup 15745 1 [anon_sym_LPAREN]; AGroup 15755 1 [sym_kIf]; AGroup 3 2 syms_5;
     AGroup 15651 2 syms_6; AGroup 15655 2 syms_7; AGroup 15657 2 syms_8; AGroup 15669 2 syms_11;
     AGroup 15747 2 syms_9; AGroup 15749 2 syms_10; SGroup 8129 2 syms_12; SGroup 7100 3 syms_13;
     SGroup 9995 4 syms_14; AGroup 15751 5 syms_15; SGroup 8464 14 syms_17]);
   (230310, 20, [AGroup 5 1 [sym_ppDirective]; AGroup 15831 1 [anon_sym_LBRACK];
     AGroup 15833 1 [anon_sym_LPAREN]; AGroup 15837 1 [anon_sym_POUND];
     AGroup 15851 1 [sym_kSpecialize]; AGroup 15855 1 [sym_kIf]; AGroup 15857 1 [sym_kInherited];
     AGroup 17312 1 [sym_kString]; AGroup 3 2 syms_5; AGroup 15835 2 syms_6;
     AGroup 15839 2 syms_7; AGroup 15841 2 syms_8; AGroup 15843 2 syms_9; AGroup 15845 2 syms_10;
     AGroup 15853 2 syms_11; SGroup 9267 2 syms_12; SGroup 7556 3 syms_13; SGroup 9976 4 syms_14;
     AGroup 15847 5 syms_15; SGroup 8649 14 syms_17]);
   (230401, 20, [AGroup 5 1 [sym_ppDirective]; AGroup 15987 1 [anon_sym_LBRACK];
     AGroup 15989 1 [anon_sym_LPAREN]; AGroup 15993 1 [anon_sym_POUND];
     AGroup 16007 1 [sym_kSpecialize]; AGroup 16011 1 [sym_kIf]; AGroup 16013 1 [sym_kInherited];
     AGroup 18254 1 [sym_kString]; AGroup 3 2 syms_5; AGroup 15991 2 syms_6;
     AGroup 15995 2 syms_7; AGroup 15997 2 syms_8; AGroup 15999 2 syms_9; AGroup 16001 2 syms_10;
     AGroup 16009 2 syms_11; SGroup 9525 2 syms_12; SGroup 7769 3 syms_13;
     SGroup 10001 4 syms_14; AGroup 16003 5 syms_15; SGroup 9072 14 syms_17]);
   (230492, 20, [AGroup 5 1 [sym_ppDirective]; AGroup 15647 1 [anon_sym_LBRACK];
     AGroup 15653 1 [anon_sym_POUND]; AGroup 15667 1 [sym_kSpecialize];
     AGroup 15673 1 [sym_kInherited]; AGroup 15675 1 [sym_kString];
     AGroup 15745 1 [anon_sym_LPAREN]; AGroup 15755 1 [sym_kIf]; AGroup 3 2 syms_5;
     AGroup 15651 2 syms_6; AGroup 15655 2 syms_7; AGroup 15657 2 syms_8; AGroup 15669 2 syms_11;
     AGroup 15747 2 syms_9; AGroup 15749 2 syms_10; SGroup 8129 2 syms_12; SGroup 7100 3 syms_13;
     SGroup 10003 4 syms_14; AGroup 15751 5 syms_15; SGroup 8464 14 syms_17]);
   (230583, 20, [AGroup 5 1 [sym_ppDirective]; AGroup 15831 1 [anon_sym_LBRACK];
     AGroup 15833 1 [anon_sym_LPAREN]; AGroup 15837 1 [anon_sym_POUND];
     AGroup 15851 1 [sym_kSpecialize]; AGroup 15855 1 [sym_kIf]; AGroup 15857 1 [sym_kInherited];
     AGroup 17312 1 [sym_kString]; AGroup 3 2 syms_5; AGroup 15835 2 syms_6;
     AGroup 15839 2 syms_7; AGroup 15841 2 syms_8; AGroup 15843 2 syms_9; AGroup 15845 2 syms_10;
     AGroup 15853 2 syms_11; SGroup 9267 2 syms_12; SGroup 7556 3 syms_13; SGroup 9987 4 syms_14;
     AGroup 15847 5 syms_15; SGroup 8649 14 syms_17]);
   (230674, 20, [AGroup 5 1 [sym_ppDirective]; AGroup 15647 1 [anon_sym_LBRACK];
     AGroup 15653 1 [anon_sym_POUND]; AGroup 15667 1 [sym_kSpecialize];
     AGroup 15673 1 [sym_kInherited]; AGroup 15675 1 [sym_kString];
     AGroup 15745 1 [anon_sym_LPAREN]; AGroup 15755 1 [sym_kIf]; AGroup 3 2 syms_5;
     AGroup 15651 2 syms_6; AGroup 15655 2 syms_7; AGroup 15657 2 syms_8; AGroup 15669 2 syms_11;
     AGroup 15747 2 syms_9; AGroup 15749 2 syms_10; SGroup 8129 2 syms_12; SGroup 7100 3 syms_13;
     SGroup 10008 4 syms_14; AGroup 15751 5 syms_15; SGroup 8464 14 syms_17]);
   (230765, 20, [AGroup 5 1 [sym_ppDirective]; AGroup 15831 1 [anon_sym_LBRACK];
     AGroup 15833 1 [anon_sym_LPAREN]; AGroup 15837 1 [anon_sym_POUND];
     AGroup 15851 1 [sym_kSpecialize]; AGroup 15855 1 [sym_kIf]; AGroup 15857 1 [sym_kInherited];
     AGroup 17312 1 [sym_kString]; AGroup 3 2 syms_5; AGroup 15835 2 syms_6;
     AGroup 15839 2 syms_7; AGroup 15841 2 syms_8; AGroup 15843 2 syms_9; AGroup 15845 2 syms_10;
     AGroup 15853 2 syms_11; SGroup 9267 2 syms_12; SGroup 7556 3 syms_13; SGroup 9998 4 syms_14;
     AGroup 15847 5 syms_15; SGroup 8649 14 syms_17]);
   (230856, 20, [AGroup 5 1 [sym_ppDirective]; AGroup 15647 1 [anon_sym_LBRACK];
     AGroup 15653 1 [anon_sym_POUND]; AGroup 15667 1 [sym_kSpecialize];
     AGroup 15673 1 [sym_kInherited]; AGroup 15675 1 [sym_kString];
     AGroup 15745 1 [anon_sym_LPAREN]; AGroup 15755 1 [sym_kIf]; AGroup 3 2 syms_5;
     AGroup 15651 2 syms_6; AGroup 15655 2 syms_7; AGroup 15657 2 syms_8; AGroup 15669 2 syms_11;
     AGroup 15747 2 syms_9; AGroup 15749 2 syms_10; SGroup 8129 2 syms_12; SGroup 7100 3 syms_13;
     SGroup 10019 4 syms_14; AGroup 15751 5 syms_15; SGroup 8464 14 syms_17]);
   (230947, 20, [AGroup 5 1 [sym_ppDirective]; AGroup 14821 1 [anon_sym_LBRACK];
     AGroup 14823 1 [anon_sym_LPAREN]; AGroup 14827 1 [anon_sym_POUND];
     AGroup 14839 1 [sym_kSpecialize]; AGroup 14843 1 [sym_kIf]; AGroup 14845 1 [sym_kInherited];
     AGroup 14847 1 [sym_kString]; AGroup 3 2 syms_5; AGroup 14825 2 syms_6;
     AGroup 14829 2 syms_7; AGroup 14831 2 syms_8; AGroup 14833 2 syms_9; AGroup 14835 2 syms_10;
     AGroup 14841 2 syms_11; SGroup 5943 2 syms_12; SGroup 3840 3 syms_13; SGroup 5870 4 syms_14;
     AGroup 14837 5 syms_15; SGroup 5828 14 syms_17]);
   (231038, 20, [AGroup 5 1 [sym_ppDirective]; AGroup 15831 1 [anon_sym_LBRACK];
     AGroup 15833 1 [anon_sym_LPAREN]; AGroup 15837 1 [anon_sym_POUND];
     AGroup 15851 1 [sym_kSpecialize]; AGroup 15855 1 [sym_kIf]; AGroup 15857 1 [sym_kInherited];
     AGroup 17312 1 [sym_kString]; AGroup 3 2 syms_5; AGroup 15835 2 syms_6;
     AGroup 15839 2 syms_7; AGroup 15841 2 syms_8; AGroup 15843 2 syms_9; AGroup 15845 2 syms_10;
     AGroup 15853 2 syms_11; SGroup 9267 2 syms_12; SGroup 7556 3 syms_13;
     SGroup 10006 4 syms_14; AGroup 15847 5 syms_15; SGroup 8649 14 syms_17]);
   (231129, 20, [AGroup 5 1 [sym_ppDirective]; AGroup 15647 1 [anon_sym_LBRACK];
     AGroup 15653 1 [anon_sym_POUND]; AGroup 15667 1 [sym_kSpecialize];
     AGroup 15673 1 [sym_kInherited]; AGroup 15675 1 [sym_kString];
     AGroup 15745 1 [anon_sym_LPAREN]; AGroup 15755 1 [sym_kIf]; AGroup 3 2 syms_5;
     AGroup 15651 2 syms_6; AGroup 15655 2 syms_7; AGroup 15657 2 syms_8; AGroup 15669 2 syms_11;
     AGroup 15747 2 syms_9; AGroup 15749 2 syms_10; SGroup 8129 2 syms_12; SGroup 7100 3 syms_13;
     SGroup 10035 4 syms_14; AGroup 15751 5 syms_15; SGroup 8464 14 syms_17]);
   (231220, 20, [AGroup 5 1 [sym_ppDirective]; AGroup 15831 1 [anon_sym_LBRACK];
     AGroup 15833 1 [anon_sym_LPAREN]; AGroup 15837 1 [anon_sym_POUND];
     AGroup 15851 1 [sym_kSpecialize]; AGroup 15855 1 [sym_kIf]; AGroup 15857 1 [sym_kInherited];
     AGroup 17312 1 [sym_kString]; AGroup 3 2 syms_5; AGroup 15835 2 syms_6;
     AGroup 15839 2 syms_7; AGroup 15841 2 syms_8; AGroup 15843 2 syms_9; AGroup 15845 2 syms_10;
     AGroup 15853 2 syms_11; SGroup 9267 2 syms_12; SGroup 7556 3 syms_13;
     SGroup 10011 4 syms_14; AGroup 15847 5 syms_15; SGroup 8649 14 syms_17]);
   (231311, 20, [AGroup 5 1 [sym_ppDirective]; AGroup 15647 1 [anon_sym_LBRACK];
     AGroup 15653 1 [anon_sym_POUND]; AGroup 15667 1 [sym_kSpecialize];
     AGroup 15673 1 [sym_kInherited]; AGroup 15675 1 [sym_kString];
     AGroup 15745 1 [anon_sym_LPAREN]; AGroup 15755 1 [sym_kIf]; AGroup 3 2 syms_5;
     AGroup 15651 2 syms_6; AGroup 15655 2 syms_7; AGroup 15657 2 syms_8; AGroup 15669 2 syms_11;
     AGroup 15747 2 syms_9; AGroup 15749 2 syms_10; SGroup 8129 2 syms_12; SGroup 7100 3 syms_13;
     SGroup 10046 4 syms_14; AGroup 15751 5 syms_15; SGroup 8464 14 syms_17]);
   (231402, 20, [AGroup 5 1 [sym_ppDirective]; AGroup 15831 1 [anon_sym_LBRACK];
     AGroup 15833 1 [anon_sym_LPAREN]; AGroup 15837 1 [anon_sym_POUND];
     AGroup 15851 1 [sym_kSpecialize]; AGroup 15855 1 [sym_kIf]; AGroup 15857 1 [sym_kInherited];
     AGroup 17312 1 [sym_kString]; AGroup 3 2 syms_5; AGroup 15835 2 syms_6;
     AGroup 15839 2 syms_7; AGroup 15841 2 syms_8; AGroup 15843 2 syms_9; AGroup 15845 2 syms_10;
     AGroup 15853 2 syms_11; SGroup 9267 2 syms_12; SGroup 7556 3 syms_13;
     SGroup 10025 4 syms_14; AGroup 15847 5 syms_15; SGroup 8649 14 syms_17]);
   (231493, 20, [AGroup 5 1 [sym_ppDirective]; AGroup 15647 1 [anon_sym_LBRACK];
     AGroup 15653 1 [anon_sym_POUND]; AGroup 15667 1 [sym_kSpecialize];
     AGroup 15673 1 [sym_kInherited]; AGroup 15675 1 [sym_kString];
     AGroup 15745 1 [anon_sym_LPAREN]; AGroup 15755 1 [sym_kIf]; AGroup 3 2 syms_5;
     AGroup 15651 2 syms_6; AGroup 15655 2 syms_7; AGroup 15657 2 syms_8; AGroup 15669 2 syms_11;
     AGroup 15747 2 syms_9; AGroup 15749 2 syms_10; SGroup 8129 2 syms_12; SGroup 7100 3 syms_13;
     SGroup 10058 4 syms_14; AGroup 15751 5 syms_15; SGroup 8464 14 syms_17]);
   (231584, 20, [AGroup 5 1 [sym_ppDirective]; AGroup 15831 1 [anon_sym_LBRACK];
     AGroup 15833 1 [anon_sym_LPAREN]; AGroup 15837 1 [anon_sym_POUND];
     AGroup 15851 1 [sym_kSpecialize]; AGroup 15855 1 [sym_kIf]; AGroup 15857 1 [sym_kInherited];
     AGroup 17312 1 [sym_kString]; AGroup 3 2 syms_5; AGroup 15835 2 syms_6;
     AGroup 15839 2 syms_7; AGroup 15841 2 syms_8; AGroup 15843 2 syms_9; AGroup 15845 2 syms_10;
     AGroup 15853 2 syms_11; SGroup 9267 2 syms_12; SGroup 7556 3 syms_13;
     SGroup 10041 4 syms_14; AGroup 15847 5 syms_15; SGroup 8649 14 syms_17]);
   (231675, 20, [AGroup 5 1 [sym_ppDirective]; AGroup 15647 1 [anon_sym_LBRACK];
     AGroup 15653 1 [anon_sym_POUND]; AGroup 15667 1 [sym_kSpecialize];
     AGroup 15673 1 [sym_kInherited]; AGroup 15675 1 [sym_kString];
     AGroup 15745 1 [anon_sym_LPAREN]; AGroup 15755 1 [sym_kIf]; AGroup 3 2 syms_5;
     AGroup 15651 2 syms_6; AGroup 15655 2 syms_7; AGroup 15657 2 syms_8; AGroup 15669 2 syms_11;
     AGroup 15747 2 syms_9; AGroup 15749 2 syms_10; SGroup 8129 2 syms_12; SGroup 7100 3 syms_13;
     SGroup 10066 4 syms_14; AGroup 15751 5 syms_15; SGroup 8464 14 syms_17]);
   (231766, 20, [AGroup 5 1 [sym_ppDirective]; AGroup 15831 1 [anon_sym_LBRACK];
     AGroup 15833 1 [anon_sym_LPAREN]; AGroup 15837 1 [anon_sym_POUND];
     AGroup 15851 1 [sym_kSpecialize]; AGroup 15855 1 [sym_kIf]; AGroup 15857 1 [sym_kInherited];
     AGroup 17312 1 [sym_kString]; AGroup 3 2 syms_5; AGroup 15835 2 syms_6;
     AGroup 15839 2 syms_7; AGroup 15841 2 syms_8; AGroup 15843 2 syms_9; AGroup 15845 2 syms_10;
     AGroup 15853 2 syms_11; SGroup 9267 2 syms_12; SGroup 7556 3 syms_13;
     SGroup 10051 4 syms_14; AGroup 15847 5 syms_15; SGroup 8649 14 syms_17]);
   (231857, 20, [AGroup 5 1 [sym_ppDirective]; AGroup 15647 1 [anon_sym_LBRACK];
     AGroup 15653 1 [anon_sym_POUND]; AGroup 15667 1 [sym_kSpecialize];
     AGroup 15673 1 [sym_kInherited]; AGroup 15675 1 [sym_kString];
     AGroup 15745 1 [anon_sym_LPAREN]; AGroup 15755 1 [sym_kIf]; AGroup 3 2 syms_5;
     AGroup 15651 2 syms_6; AGroup 15655 2 syms_7; AGroup 15657 2 syms_8; AGroup 15669 2 syms_11;
     AGroup 15747 2 syms_9; AGroup 15749 2 syms_10; SGroup 8129 2 syms_12; SGroup 7100 3 syms_13;
     SGroup 10081 4 syms_14; AGroup 15751 5 syms_15; SGroup 8464 14 syms_17]);
   (231948, 20, [AGroup 5 1 [sym_ppDirective]; AGroup 15831 1 [anon_sym_LBRACK];
     AGroup 15833 1 [anon_sym_LPAREN]; AGroup 15837 1 [anon_sym_POUND];
     AGroup 15851 1 [sym_kSpecialize]; AGroup 15855 1 [sym_kIf]; AGroup 15857 1 [sym_kInherited];
     AGroup 17312 1 [sym_kString]; AGroup 3 2 syms_5; AGroup 15835 2 syms_6;
     AGroup 15839 2 syms_7; AGroup 15841 2 syms_8; AGroup 15843 2 syms_9; AGroup 15845 2 syms_10;
     AGroup 15853 2 syms_11; SGroup 9267 2 syms_12; SGroup 7556 3 syms_13;
     SGroup 10061 4 syms_14; AGroup 15847 5 syms_15; SGroup 8649 14 syms_17]);
   (232039, 20, [AGroup 5 1 [sym_ppDirective]; AGroup 15647 1 [anon_sym_LBRACK];
     AGroup 15653 1 [anon_sym_POUND]; AGroup 15667 1 [sym_kSpecialize];
     AGroup 15673 1 [sym_kInherited]; AGroup 15675 1 [sym_kString];
     AGroup 15745 1 [anon_sym_LPAREN]; AGroup 15755 1 [sym_kIf]; AGroup 3 2 syms_5;
     AGroup 15651 2 syms_6; AGroup 15655 2 syms_7; AGroup 15657 2 syms_8; AGroup 15669 2 syms_11;
     AGroup 15747 2 syms_9; AGroup 15749 2 syms_10; SGroup 8129 2 syms_12; SGroup 7100 3 syms_13;
     SGroup 10086 4 syms_14; AGroup 15751 5 syms_15; SGroup 8464 14 syms_17]);
   (232130, 20, [AGroup 5 1 [sym_ppDirective]; AGroup 673 1 [anon_sym_LBRACK];
     AGroup 675 1 [anon_sym_LPAREN]; AGroup 679 1 [anon_sym_POUND];
     AGroup 695 1 [sym_kSpecialize]; AGroup 717 1 [sym_kInherited]; AGroup 723 1 [sym_kString];
     AGroup 15297 1 [sym_kIf]; AGroup 3 2 syms_5; AGroup 677 2 syms_6; AGroup 681 2 syms_7;
     AGroup 683 2 syms_8; AGroup 685 2 syms_9; AGroup 687 2 syms_10; AGroup 711 2 syms_11;
     SGroup 7426 2 syms_12; SGroup 6541 3 syms_13; SGroup 7311 4 syms_14; AGroup 689 5 syms_15;
     SGroup 7259 14 syms_17]);
   (232221, 20, [AGroup 5 1 [sym_ppDirective]; AGroup 15831 1 [anon_sym_LBRACK];
     AGroup 15833 1 [anon_sym_LPAREN]; AGroup 15837 1 [anon_sym_POUND];
     AGroup 15851 1 [sym_kSpecialize]; AGroup 15855 1 [sym_kIf]; AGroup 15857 1 [sym_kInherited];
     AGroup 17312 1 [sym_kString]; AGroup 3 2 syms_5; AGroup 15835 2 syms_6;
     AGroup 15839 2 syms_7; AGroup 15841 2 syms_8; AGroup 15843 2 syms_9; AGroup 15845 2 syms_10;
     AGroup 15853 2 syms_11; SGroup 9267 2 syms_12; SGroup 7556 3 syms_13;
     SGroup 10073 4 syms_14; AGroup 15847 5 syms_15; SGroup 8649 14 syms_17]);
   (232312, 20, [AGroup 5 1 [sym_ppDirective]; AGroup 15647 1 [anon_sym_LBRACK];
     AGroup 15653 1 [anon_sym_POUND]; AGroup 15667 1 [sym_kSpecialize];
     AGroup 15673 1 [sym_kInherited]; AGroup 15675 1 [sym_kString];
     AGroup 15745 1 [anon_sym_LPAREN]; AGroup 15755 1 [sym_kIf]; AGroup 3 2 syms_5;
     AGroup 15651 2 syms_6; AGroup 15655 2 syms_7; AGroup 15657 2 syms_8; AGroup 15669 2 syms_11;
     AGroup 15747 2 syms_9; AGroup 15749 2 syms_10; SGroup 8129 2 syms_12; SGroup 7100 3 syms_13;
     SGroup 10093 4 syms_14; AGroup 15751 5 syms_15; SGroup 8464 14 syms_17]);
   (232403, 20, [AGroup 5 1 [sym_ppDirective]; AGroup 15831 1 [anon_sym_LBRACK];
     AGroup 15833 1 [anon_sym_LPAREN]; AGroup 15837 1 [anon_sym_POUND];
     AGroup 15851 1 [sym_kSpecialize]; AGroup 15855 1 [sym_kIf]; AGroup 15857 1 [sym_kInherited];
     AGroup 17312 1 [sym_kString]; AGroup 3 2 syms_5; AGroup 15835 2 syms_6;
     AGroup 15839 2 syms_7; AGroup 15841 2 syms_8; AGroup 15843 2 syms_9; AGroup 15845 2 syms_10;
     AGroup 15853 2 syms_11; SGroup 9267 2 syms_12; SGroup 7556 3 syms_13;
     SGroup 10083 4 syms_14; AGroup 15847 5 syms_15; SGroup 8649 14 syms_17]);
   (232494, 20, [AGroup 5 1 [sym_ppDirective]; AGroup 15647 1 [anon_sym_LBRACK];
     AGroup 15653 1 [anon_sym_POUND]; AGroup 15667 1 [sym_kSpecialize];
     AGroup 15673 1 [sym_kInherited]; AGroup 15675 1 [sym_kString];
     AGroup 15745 1 [anon_sym_LPAREN]; AGroup 15755 1 [sym_kIf]; AGroup 3 2 syms_5;
     AGroup 15651 2 syms_6; AGroup 15655 2 syms_7; AGroup 15657 2 syms_8; AGroup 15669 2 syms_11;
     AGroup 15747 2 syms_9; AGroup 15749 2 syms_10; SGroup 8129 2 syms_12; SGroup 7100 3 syms_13;
     SGroup 10098 4 syms_14; AGroup 15751 5 syms_15; SGroup 8464 14 syms_17]);
   (232585, 20, [AGroup 5 1 [sym_ppDirective]; AGroup 15831 1 [anon_sym_LBRACK];
     AGroup 15833 1 [anon_sym_LPAREN]; AGroup 15837 1 [anon_sym_POUND];
     AGroup 15851 1 [sym_kSpecialize]; AGroup 15855 1 [sym_kIf]; AGroup 15857 1 [sym_kInherited];
     AGroup 17312 1 [sym_kString]; AGroup 3 2 syms_5; AGroup 15835 2 syms_6;
     AGroup 15839 2 syms_7; AGroup 15841 2 syms_8; AGroup 15843 2 syms_9; AGroup 15845 2 syms_10;
     AGroup 15853 2 syms_11; SGroup 9267 2 syms_12; SGroup 7556 3 syms_13;
     SGroup 10090 4 syms_14; AGroup 15847 5 syms_15; SGroup 8649 14 syms_17]);
   (232676, 20, [AGroup 5 1 [sym_ppDirective]; AGroup 15647 1 [anon_sym_LBRACK];
     AGroup 15653 1 [anon_sym_POUND]; AGroup 15667 1 [sym_kSpecialize];
     AGroup 15673 1 [sym_kInherited]; AGroup 15675 1 [sym_kString];
     AGroup 15745 1 [anon_sym_LPAREN]; AGroup 15755 1 [sym_kIf]; AGroup 3 2 syms_5;
     AGroup 15651 2 syms_6; AGroup 15655 2 syms_7; AGroup 15657 2 syms_8; AGroup 15669 2 syms_11;
     AGroup 15747 2 syms_9; AGroup 15749 2 syms_10; SGroup 8129 2 syms_12; SGroup 7100 3 syms_13;
     SGroup 10106 4 syms_14; AGroup 15751 5 syms_15; SGroup 8464 14 syms_17]);
   (232767, 20, [AGroup 5 1 [sym_ppDirective]; AGroup 673 1 [anon_sym_LBRACK];
     AGroup 675 1 [anon_sym_LPAREN]; AGroup 679 1 [anon_sym_POUND];
     AGroup 695 1 [sym_kSpecialize]; AGroup 717 1 [sym_kInherited]; AGroup 723 1 [sym_kString];
     AGroup 15297 1 [sym_kIf]; AGroup 3 2 syms_5; AGroup 677 2 syms_6; AGroup 681 2 syms_7;
     AGroup 683 2 syms_8; AGroup 685 2 syms_9; AGroup 687 2 syms_10; AGroup 711 2 syms_11;
     SGroup 7426 2 syms_12; SGroup 6541 3 syms_13; SGroup 7312 4 syms_14; AGroup 689 5 syms_15;
     SGroup 7259 14 syms_17]);
   (232858, 20, [AGroup 5 1 [sym_ppDirective]; AGroup 673 1 [anon_sym_LBRACK];
     AGroup 675 1 [anon_sym_LPAREN]; AGroup 679 1 [anon_sym_POUND];
     AGroup 695 1 [sym_kSpecialize]; AGroup 717 1 [sym_kInherited]; AGroup 723 1 [sym_kString];
     AGroup 15297 1 [sym_kIf]; AGroup 3 2 syms_5; AGroup 677 2 syms_6; AGroup 681 2 syms_7;
     AGroup 683 2 syms_8; AGroup 685 2 syms_9; AGroup 687 2 syms_10; AGroup 711 2 syms_11;
     SGroup 7426 2 syms_12; SGroup 6541 3 syms_13; SGroup 7313 4 syms_14; AGroup 689 5 syms_15;
     SGroup 7259 14 syms_17]);
   (232949, 20, [AGroup 5 1 [sym_ppDirective]; AGroup 15831 1 [anon_sym_LBRACK];
     AGroup 15833 1 [anon_sym_LPAREN]; AGroup 15837 1 [anon_sym_POUND];
     AGroup 15851 1 [sym_kSpecialize]; AGroup 15855 1 [sym_kIf]; AGroup 15857 1 [sym_kInherited];
     AGroup 17312 1 [sym_kString]; AGroup 3 2 syms_5; AGroup 15835 2 syms_6;
     AGroup 15839 2 syms_7; AGroup 15841 2 syms_8; AGroup 15843 2 syms_9; AGroup 15845 2 syms_10;
     AGroup 15853 2 syms_11; SGroup 9267 2 syms_12; SGroup 7556 3 syms_13;
     SGroup 10096 4 syms_14; AGroup 15847 5 syms_15; SGroup 8649 14 syms_17]);
   (233040, 20, [AGroup 5 1 [sym_ppDirective]; AGroup 15647 1 [anon_sym_LBRACK];
     AGroup 15653 1 [anon_sym_POUND]; AGroup 15667 1 [sym_kSpecialize];
     AGroup 15673 1 [sym_kInherited]; AGroup 15675 1 [sym_kString];
     AGroup 15745 1 [anon_sym_LPAREN]; AGroup 15755 1 [sym_kIf]; AGroup 3 2 syms_5;
     AGroup 15651 2 syms_6; AGroup 15655 2 syms_7; AGroup 15657 2 syms_8; AGroup 15669 2 syms_11;
     AGroup 15747 2 syms_9; AGroup 15749 2 syms_10; SGroup 8129 2 syms_12; SGroup 7100 3 syms_13;
     SGroup 10117 4 syms_14; AGroup 15751 5 syms_15; SGroup 8464 14 syms_17]);
   (233131, 20, [AGroup 5 1 [sym_ppDirective]; AGroup 15831 1 [anon_sym_LBRACK];
     AGroup 15833 1 [anon_sym_LPAREN]; AGroup 15837 1 [anon_sym_POUND];
     AGroup 15851 1 [sym_kSpecialize]; AGroup 15855 1 [sym_kIf]; AGroup 15857 1 [sym_kInherited];
     AGroup 17312 1 [sym_kString]; AGroup 3 2 syms_5; AGroup 15835 2 syms_6;
     AGroup 15839 2 syms_7; AGroup 15841 2 syms_8; AGroup 15843 2 syms_9; AGroup 15845 2 syms_10;
     AGroup 15853 2 syms_11; SGroup 9267 2 syms_12; SGroup 7556 3 syms_13;
     SGroup 10102 4 syms_14; AGroup 15847 5 syms_15; SGroup 8649 14 syms_17]);
   (233222, 20, [AGroup 5 1 [sym_ppDirective]; AGroup 15831 1 [anon_sym_LBRACK];
     AGroup 15833 1 [anon_sym_LPAREN]; AGroup 15837 1 [anon_sym_POUND];
     AGroup 15851 1 [sym_kSpecialize]; AGroup 15855 1 [sym_kIf]; AGroup 15857 1 [sym_kInherited];
     AGroup 17312 1 [sym_kString]; AGroup 3 2 syms_5; AGroup 15835 2 syms_6;
     AGroup 15839 2 syms_7; AGroup 15841 2 syms_8; AGroup 15843 2 syms_9; AGroup 15845 2 syms_10;
     AGroup 15853 2 syms_11; SGroup 9267 2 syms_12; SGroup 7556 3 syms_13;
     SGroup 10112 4 syms_14; AGroup 15847 5 syms_15; SGroup 8649 14 syms_17]);
   (233313, 20, [AGroup 5 1 [sym_ppDirective]; AGroup 15831 1 [anon_sym_LBRACK];
     AGroup 15833 1 [anon_sym_LPAREN]; AGroup 15837 1 [anon_sym_POUND];
     AGroup 15851 1 [sym_kSpecialize]; AGroup 15855 1 [sym_kIf]; AGroup 15857 1 [sym_kInherited];
     AGroup 17312 1 [sym_kString]; AGroup 3 2 syms_5; AGroup 15835 2 syms_6;
     AGroup 15839 2 syms_7; AGroup 15841 2 syms_8; AGroup 15843 2 syms_9; AGroup 15845 2 syms_10;
     AGroup 15853 2 syms_11; SGroup 9267 2 syms_12; SGroup 7556 3 syms_13;
     SGroup 10119 4 syms_14; AGroup 15847 5 syms_15; SGroup 8649 14 syms_17]);
   (233404, 20, [AGroup 5 1 [sym_ppDirective]; AGroup 16247 1 [anon_sym_LBRACK];
     AGroup 16249 1 [anon_sym_LPAREN]; AGroup 16253 1 [anon_sym_POUND];
     AGroup 16267 1 [sym_kSpecialize]; AGroup 16271 1 [sym_kIf]; AGroup 16273 1 [sym_kInherited];
     AGroup 16745 1 [sym_kString]; AGroup 3 2 syms_5; AGroup 16251 2 syms_6;
     AGroup 16255 2 syms_7; AGroup 16257 2 syms_8; AGroup 16259 2 syms_9; AGroup 16261 2 syms_10;
     AGroup 16269 2 syms_11; SGroup 8258 2 syms_12; SGroup 7207 3 syms_13;
     SGroup 10125 4 syms_14; AGroup 16263 5 syms_15; SGroup 8006 14 syms_17]);
   (233495, 20, [AGroup 5 1 [sym_ppDirective]; AGroup 15987 1 [anon_sym_LBRACK];
     AGroup 15989 1 [anon_sym_LPAREN]; AGroup 15993 1 [anon_sym_POUND];
     AGroup 16007 1 [sym_kSpecialize]; AGroup 16011 1 [sym_kIf]; AGroup 16013 1 [sym_kInherited];
     AGroup 18254 1 [sym_kString]; AGroup 3 2 syms_5; AGroup 15991 2 syms_6;
     AGroup 15995 2 syms_7; AGroup 15997 2 syms_8; AGroup 15999 2 syms_9; AGroup 16001 2 syms_10;
     AGroup 16009 2 syms_11; SGroup 9525 2 syms_12; SGroup 7769 3 syms_13;
     SGroup 10126 4 syms_14; AGroup 16003 5 syms_15; SGroup 9072 14 syms_17]);
   (233586, 20, [AGroup 5 1 [sym_ppDirective]; AGroup 15987 1 [anon_sym_LBRACK];
     AGroup 15989 1 [anon_sym_LPAREN]; AGroup 15993 1 [anon_sym_POUND];
     AGroup 16007 1 [sym_kSpecialize]; AGroup 16011 1 [sym_kIf]; AGroup 16013 1 [sym_kInherited];
     AGroup 18254 1 [sym_kString]; AGroup 3 2 syms_5; AGroup 15991 2 syms_6;
     AGroup 15995 2 syms_7; AGroup 15997 2 syms_8; AGroup 15999 2 syms_9; AGroup 16001 2 syms_10;
     AGroup 16009 2 syms_11; SGroup 9525 2 syms_12; SGroup 7769 3 syms_13;
     SGroup 10129 4 syms_14; AGroup 16003 5 syms_15; SGroup 9072 14 syms_17]);
   (233677, 20, [AGroup 5 1 [sym_ppDirective]; AGroup 15761 1 [anon_sym_LBRACK];
     AGroup 15763 1 [anon_sym_LPAREN]; AGroup 15767 1 [anon_sym_POUND];
     AGroup 15781 1 [sym_kSpecialize]; AGroup 15787 1 [sym_kInherited]; AGroup 16229 1 [sym_kIf];
     AGroup 17864 1 [sym_kString]; AGroup 3 2 syms_5; AGroup 15765 2 syms_6;
     AGroup 15769 2 syms_7; AGroup 15771 2 syms_8; AGroup 15783 2 syms_11; AGroup 16221 2 syms_9;
     AGroup 16223 2 syms_10; SGroup 9180 2 syms_12; SGroup 7467 3 syms_13;
     SGroup 10132 4 syms_14; AGroup 16225 5 syms_15; SGroup 9076 14 syms_17]);
   (233768, 21, [AGroup 5 1 [sym_ppDirective]; AGroup 673 1 [anon_sym_LBRACK];
     AGroup 675 1 [anon_sym_LPAREN]; AGroup 679 1 [anon_sym_POUND]; AGroup 687 1 [sym_kAt];
     AGroup 695 1 [sym_kSpecialize]; AGroup 717 1 [sym_kInherited]; AGroup 723 1 [sym_kString];
     AGroup 15297 1 [sym_kIf]; AGroup 18558 1 [sym_kNot]; AGroup 3 2 syms_5; AGroup 677 2 syms_6;
     AGroup 681 2 syms_7; AGroup 683 2 syms_8; AGroup 685 2 syms_9; AGroup 711 2 syms_11;
     SGroup 7426 2 syms_12; SGroup 6541 3 syms_13; SGroup 7313 4 syms_14; AGroup 689 5 syms_15;
     SGroup 7259 14 syms_17]);
   (233861, 31, [AGroup 5 1 [sym_ppDirective]; AGroup 13347 1 [anon_sym_LBRACK];
     AGroup 13351 1 [aux_sym_ppUsesBlock_token1]; AGroup 13365 1 [sym_identifier];
     AGroup 13367 1 [sym_kGeneric]; AGroup 13369 1 [sym_kOperator]; AGroup 13373 1 [sym_kStrict];
     AGroup 13377 1 [sym_kCase]; AGroup 13379 1 [sym_kClass]; AGroup 13391 1 [sym_kProperty];
     AGroup 13395 1 [sym_kType]; AGroup 18560 1 [anon_sym_SEMI]; AGroup 18562 1 [sym_kEnd];
     SGroup 2 1 [sym__ppIf]; SGroup 6354 1 [sym__visibility]; SGroup 9779 1 [sym_ppBlock];
     SGroup 9835 1 [sym__declOperator]; SGroup 10247 1 [sym__declProc];
     SGroup 10617 1 [sym_rttiAttributes]; SGroup 10730 1 [aux_sym_rttiAttributes_repeat2];
     SGroup 13987 1 [aux_sym_genericArg_repeat1]; SGroup 14434 1 [sym_declVariant];
     SGroup 14782 1 [sym__declClass]; AGroup 3 2 syms_5; AGroup 13381 2 syms_65;
     AGroup 13393 2 syms_66; SGroup 5685 2 syms_68; SGroup 10490 3 syms_69;
     AGroup 13383 4 syms_3; AGroup 13371 6 syms_70; SGroup 6150 6 syms_71]);
   (233974, 20, [AGroup 5 1 [sym_ppDirective]; AGroup 673 1 [anon_sym_LBRACK];
     AGroup 675 1 [anon_sym_LPAREN]; AGroup 679 1 [anon_sym_POUND];
     AGroup 695 1 [sym_kSpecialize]; AGroup 717 1 [sym_kInherited]; AGroup 723 1 [sym_kString];
     AGroup 15297 1 [sym_kIf]; AGroup 3 2 syms_5; AGroup 677 2 syms_6; AGroup 681 2 syms_7;
     AGroup 683 2 syms_8; AGroup 685 2 syms_9; AGroup 687 2 syms_10; AGroup 711 2 syms_11;
     SGroup 7426 2 syms_12; SGroup 6541 3 syms_13; SGroup 7314 4 syms_14; AGroup 689 5 syms_15;
     SGroup 7259 14 syms_17]);
   (234065, 20, [AGroup 5 1 [sym_ppDirective]; AGroup 15831 1 [anon_sym_LBRACK];
     AGroup 15833 1 [anon_sym_LPAREN]; AGroup 15837 1 [anon_sym_POUND];
     AGroup 15851 1 [sym_kSpecialize]; AGroup 15855 1 [sym_kIf]; AGroup 15857 1 [sym_kInherited];
     AGroup 17312 1 [sym_kString]; AGroup 3 2 syms_5; AGroup 15835 2 syms_6;
     AGroup 15839 2 syms_7; AGroup 15841 2 syms_8; AGroup 15843 2 syms_9; AGroup 15845 2 syms_10;
     AGroup 15853 2 syms_11; SGroup 9267 2 syms_12; SGroup 7556 3 syms_13;
     SGroup 10174 4 syms_14; AGroup 15847 5 syms_15; SGroup 8649 14 syms_17]);
   (234156, 20, [AGroup 5 1 [sym_ppDirective]; AGroup 15761 1 [anon_sym_LBRACK];
     AGroup 15763 1 [anon_sym_LPAREN]; AGroup 15767 1 [anon_sym_POUND];
     AGroup 15781 1 [sym_kSpecialize]; AGroup 15787 1 [sym_kInherited]; AGroup 16229 1 [sym_kIf];
     AGroup 17864 1 [sym_kString]; AGroup 3 2 syms_5; AGroup 15765 2 syms_6;
     AGroup 15769 2 syms_7; AGroup 15771 2 syms_8; AGroup 15783 2 syms_11; AGroup 16221 2 syms_9;
     AGroup 16223 2 syms_10; SGroup 9180 2 syms_12; SGroup 7467 3 syms_13;
     SGroup 10176 4 syms_14; AGroup 16225 5 syms_15; SGroup 9076 14 syms_17]);
   (234247, 20, [AGroup 5 1 [sym_ppDirective]; AGroup 15761 1 [anon_sym_LBRACK];
     AGroup 15763 1 [anon_sym_LPAREN]; AGroup 15767 1 [anon_sym_POUND];
     AGroup 15781 1 [sym_kSpecialize]; AGroup 15787 1 [sym_kInherited]; AGroup 16229 1 [sym_kIf];
     AGroup 17864 1 [sym_kString]; AGroup 3 2 syms_5; AGroup 15765 2 syms_6;
     AGroup 15769 2 syms_7; AGroup 15771 2 syms_8; AGroup 15783 2 syms_11; AGroup 16221 2 syms_9;
     AGroup 16223 2 syms_10; SGroup 9180 2 syms_12; SGroup 7467 3 syms_13;
     SGroup 10178 4 syms_14; AGroup 16225 5 syms_15; SGroup 9076 14 syms_17]);
   (234338, 20, [AGroup 5 1 [sym_ppDirective]; AGroup 16715 1 [anon_sym_LBRACK];
     AGroup 16717 1 [anon_sym_LPAREN]; AGroup 16721 1 [anon_sym_POUND];
     AGroup 16735 1 [sym_kSpecialize]; AGroup 16739 1 [sym_kIf]; AGroup 16741 1 [sym_kInherited];
     AGroup 18201 1 [sym_kString]; AGroup 3 2 syms_5; AGroup 16719 2 syms_6;
     AGroup 16723 2 syms_7; AGroup 16725 2 syms_8; AGroup 16727 2 syms_9; AGroup 16729 2 syms_10;
     AGroup 16737 2 syms_11; SGroup 7901 2 syms_12; SGroup 7014 3 syms_13; SGroup 8349 4 syms_14;
     AGroup 16731 5 syms_15; SGroup 7757 14 syms_17]);
   (234429, 20, [AGroup 5 1 [sym_ppDirective]; AGroup 14821 1 [anon_sym_LBRACK];
     AGroup 14823 1 [anon_sym_LPAREN]; AGroup 14827 1 [anon_sym_POUND];
     AGroup 14839 1 [sym_kSpecialize]; AGroup 14843 1 [sym_kIf]; AGroup 14845 1 [sym_kInherited];
     AGroup 14847 1 [sym_kString]; AGroup 3 2 syms_5; AGroup 14825 2 syms_6;
     AGroup 14829 2 syms_7; AGroup 14831 2 syms_8; AGroup 14833 2 syms_9; AGroup 14835 2 syms_10;
     AGroup 14841 2 syms_11; SGroup 5943 2 syms_12; SGroup 3840 3 syms_13; SGroup 5853 4 syms_14;
     AGroup 14837 5 syms_15; SGroup 5828 14 syms_17]);
   (234520, 10, [AGroup 11641 1 [sym_kDispId]; AGroup 11643 1 [sym_kPublic]; AGroup 11645 1 [sym_kMessage];
     AGroup 11647 1 [sym_kDeprecated]; AGroup 11649 1 [sym_kExport]; AGroup 11651 1 [sym_kAlias];
     SGroup 4477 1 [aux_sym__procAttributeNoExt_repeat2]; SGroup 13270 1 [sym_procAttribute];
     AGroup 3 3 syms_1; AGroup 1016 39 syms_33]);
   (234591, 20, [AGroup 5 1 [sym_ppDirective]; AGroup 15647 1 [anon_sym_LBRACK];
     AGroup 15653 1 [anon_sym_POUND]; AGroup 15667 1 [sym_kSpecialize];
     AGroup 15673 1 [sym_kInherited]; AGroup 15675 1 [sym_kString];
     AGroup 15745 1 [anon_sym_LPAREN]; AGroup 16245 1 [sym_kIf]; AGroup 3 2 syms_5;
     AGroup 15651 2 syms_6; AGroup 15655 2 syms_7; AGroup 15657 2 syms_8; AGroup 15669 2 syms_11;
     AGroup 16239 2 syms_9; AGroup 16241 2 syms_10; SGroup 8129 2 syms_12; SGroup 7100 3 syms_13;
     SGroup 8585 4 syms_14; AGroup 16243 5 syms_15; SGroup 8367 14 syms_17]);
   (234682, 20, [AGroup 5 1 [sym_ppDirective]; AGroup 15755 1 [sym_kIf]; AGroup 15761 1 [anon_sym_LBRACK];
     AGroup 15763 1 [anon_sym_LPAREN]; AGroup 15767 1 [anon_sym_POUND];
     AGroup 15781 1 [sym_kSpecialize]; AGroup 15787 1 [sym_kInherited];
     AGroup 17864 1 [sym_kString]; AGroup 3 2 syms_5; AGroup 15747 2 syms_9;
     AGroup 15749 2 syms_10; AGroup 15765 2 syms_6; AGroup 15769 2 syms_7; AGroup 15771 2 syms_8;
     AGroup 15783 2 syms_11; SGroup 9180 2 syms_12; SGroup 7467 3 syms_13;
     SGroup 10336 4 syms_14; AGroup 18564 5 syms_15; SGroup 8600 14 syms_17]);
   (234773, 20, [AGroup 5 1 [sym_ppDirective]; AGroup 14983 1 [anon_sym_LBRACK];
     AGroup 14985 1 [anon_sym_LPAREN]; AGroup 14989 1 [anon_sym_POUND];
     AGroup 15001 1 [sym_kSpecialize]; AGroup 15007 1 [sym_kInherited];
     AGroup 15009 1 [sym_kString]; AGroup 15187 1 [sym_kIf]; AGroup 3 2 syms_5;
     AGroup 14987 2 syms_6; AGroup 14991 2 syms_7; AGroup 14993 2 syms_8; AGroup 15003 2 syms_11;
     AGroup 15181 2 syms_9; AGroup 15183 2 syms_10; SGroup 7132 2 syms_12; SGroup 6248 3 syms_13;
     SGroup 7222 4 syms_14; AGroup 15185 5 syms_15; SGroup 7210 14 syms_17]);
   (234864, 20, [AGroup 5 1 [sym_ppDirective]; AGroup 14983 1 [anon_sym_LBRACK];
     AGroup 14985 1 [anon_sym_LPAREN]; AGroup 14989 1 [anon_sym_POUND];
     AGroup 15001 1 [sym_kSpecialize]; AGroup 15007 1 [sym_kInherited];
     AGroup 15009 1 [sym_kString]; AGroup 15755 1 [sym_kIf]; AGroup 3 2 syms_5;
     AGroup 14987 2 syms_6; AGroup 14991 2 syms_7; AGroup 14993 2 syms_8; AGroup 15003 2 syms_11;
     AGroup 15747 2 syms_9; AGroup 15749 2 syms_10; SGroup 7132 2 syms_12; SGroup 6248 3 syms_13;
     SGroup 10338 4 syms_14; AGroup 18566 5 syms_15; SGroup 7167 14 syms_17]);
   (234955, 20, [AGroup 5 1 [sym_ppDirective]; AGroup 15647 1 [anon_sym_LBRACK];
     AGroup 15653 1 [anon_sym_POUND]; AGroup 15667 1 [sym_kSpecialize];
     AGroup 15673 1 [sym_kInherited]; AGroup 15675 1 [sym_kString];
     AGroup 15745 1 [anon_sym_LPAREN]; AGroup 16245 1 [sym_kIf]; AGroup 3 2 syms_5;
     AGroup 15651 2 syms_6; AGroup 15655 2 syms_7; AGroup 15657 2 syms_8; AGroup 15669 2 syms_11;
     AGroup 16239 2 syms_9; AGroup 16241 2 syms_10; SGroup 8129 2 syms_12; SGroup 7100 3 syms_13;
     SGroup 8587 4 syms_14; AGroup 16243 5 syms_15; SGroup 8367 14 syms_17]);
   (235046, 20, [AGroup 5 1 [sym_ppDirective]; AGroup 15647 1 [anon_sym_LBRACK];
     AGroup 15653 1 [anon_sym_POUND]; AGroup 15667 1 [sym_kSpecialize];
     AGroup 15673 1 [sym_kInherited]; AGroup 15675 1 [sym_kString];
     AGroup 15745 1 [anon_sym_LPAREN]; AGroup 16245 1 [sym_kIf]; AGroup 3 2 syms_5;
     AGroup 15651 2 syms_6; AGroup 15655 2 syms_7; AGroup 15657 2 syms_8; AGroup 15669 2 syms_11;
     AGroup 16239 2 syms_9; AGroup 16241 2 syms_10; SGroup 8129 2 syms_12; SGroup 7100 3 syms_13;
     SGroup 8570 4 syms_14; AGroup 16243 5 syms_15; SGroup 8367 14 syms_17]);
   (235137, 20, [AGroup 5 1 [sym_ppDirective]; AGroup 15647 1 [anon_sym_LBRACK];
     AGroup 15653 1 [anon_sym_POUND]; AGroup 15667 1 [sym_kSpecialize];
     AGroup 15673 1 [sym_kInherited]; AGroup 15675 1 [sym_kString];
     AGroup 15745 1 [anon_sym_LPAREN]; AGroup 16245 1 [sym_kIf]; AGroup 3 2 syms_5;
     AGroup 15651 2 syms_6; AGroup 15655 2 syms_7; AGroup 15657 2 syms_8; AGroup 15669 2 syms_11;
     AGroup 16239 2 syms_9; AGroup 16241 2 syms_10; SGroup 8129 2 syms_12; SGroup 7100 3 syms_13;
     SGroup 8571 4 syms_14; AGroup 16243 5 syms_15; SGroup 8367 14 syms_17]);
   (235228, 21, [AGroup 5 1 [sym_ppDirective]; AGroup 15647 1 [anon_sym_LBRACK];
     AGroup 15653 1 [anon_sym_POUND]; AGroup 15667 1 [sym_kSpecialize];
     AGroup 15673 1 [sym_kInherited]; AGroup 15675 1 [sym_kString];
     AGroup 15745 1 [anon_sym_LPAREN]; AGroup 16241 1 [sym_kAt]; AGroup 16245 1 [sym_kIf];
     AGroup 18568 1 [sym_kNot]; AGroup 3 2 syms_5; AGroup 15651 2 syms_6; AGroup 15655 2 syms_7;
     AGroup 15657 2 syms_8; AGroup 15669 2 syms_11; AGroup 16239 2 syms_9; SGroup 8129 2 syms_12;
     SGroup 7100 3 syms_13; SGroup 8571 4 syms_14; AGroup 16243 5 syms_15; SGroup 8367 14 syms_17]);
   (235321, 20, [AGroup 5 1 [sym_ppDirective]; AGroup 15647 1 [anon_sym_LBRACK];
     AGroup 15653 1 [anon_sym_POUND]; AGroup 15667 1 [sym_kSpecialize];
     AGroup 15673 1 [sym_kInherited]; AGroup 15675 1 [sym_kString];
     AGroup 15745 1 [anon_sym_LPAREN]; AGroup 16245 1 [sym_kIf]; AGroup 3 2 syms_5;
     AGroup 15651 2 syms_6; AGroup 15655 2 syms_7; AGroup 15657 2 syms_8; AGroup 15669 2 syms_11;
     AGroup 16239 2 syms_9; AGroup 16241 2 syms_10; SGroup 8129 2 syms_12; SGroup 7100 3 syms_13;
     SGroup 8572 4 syms_14; AGroup 16243 5 syms_15; SGroup 8367 14 syms_17]);
   (235412, 20, [AGroup 5 1 [sym_ppDirective]; AGroup 15647 1 [anon_sym_LBRACK];
     AGroup 15653 1 [anon_sym_POUND]; AGroup 15667 1 [sym_kSpecialize];
     AGroup 15673 1 [sym_kInherited]; AGroup 15675 1 [sym_kString];
     AGroup 15745 1 [anon_sym_LPAREN]; AGroup 16245 1 [sym_kIf]; AGroup 3 2 syms_5;
     AGroup 15651 2 syms_6; AGroup 15655 2 syms_7; AGroup 15657 2 syms_8; AGroup 15669 2 syms_11;
     AGroup 16239 2 syms_9; AGroup 16241 2 syms_10; SGroup 8129 2 syms_12; SGroup 7100 3 syms_13;
     SGroup 8573 4 syms_14; AGroup 16243 5 syms_15; SGroup 8367 14 syms_17]);
   (235503, 20, [AGroup 5 1 [sym_ppDirective]; AGroup 15647 1 [anon_sym_LBRACK];
     AGroup 15653 1 [anon_sym_POUND]; AGroup 15667 1 [sym_kSpecialize];
     AGroup 15673 1 [sym_kInherited]; AGroup 15675 1 [sym_kString];
     AGroup 15745 1 [anon_sym_LPAREN]; AGroup 16245 1 [sym_kIf]; AGroup 3 2 syms_5;
     AGroup 15651 2 syms_6; AGroup 15655 2 syms_7; AGroup 15657 2 syms_8; AGroup 15669 2 syms_11;
     AGroup 16239 2 syms_9; AGroup 16241 2 syms_10; SGroup 8129 2 syms_12; SGroup 7100 3 syms_13;
     SGroup 8574 4 syms_14; AGroup 16243 5 syms_15; SGroup 8367 14 syms_17]);
   (235594, 20, [AGroup 5 1 [sym_ppDirective]; AGroup 16247 1 [anon_sym_LBRACK];
     AGroup 16249 1 [anon_sym_LPAREN]; AGroup 16253 1 [anon_sym_POUND];
     AGroup 16267 1 [sym_kSpecialize]; AGroup 16271 1 [sym_kIf]; AGroup 16273 1 [sym_kInherited];
     AGroup 16745 1 [sym_kString]; AGroup 3 2 syms_5; AGroup 16251 2 syms_6;
     AGroup 16255 2 syms_7; AGroup 16257 2 syms_8; AGroup 16259 2 syms_9; AGroup 16261 2 syms_10;
     AGroup 16269 2 syms_11; SGroup 8258 2 syms_12; SGroup 7207 3 syms_13;
     SGroup 10240 4 syms_14; AGroup 16263 5 syms_15; SGroup 8006 14 syms_17]);
   (235685, 20, [AGroup 5 1 [sym_ppDirective]; AGroup 15987 1 [anon_sym_LBRACK];
     AGroup 15989 1 [anon_sym_LPAREN]; AGroup 15993 1 [anon_sym_POUND];
     AGroup 16007 1 [sym_kSpecialize]; AGroup 16011 1 [sym_kIf]; AGroup 16013 1 [sym_kInherited];
     AGroup 18254 1 [sym_kString]; AGroup 3 2 syms_5; AGroup 15991 2 syms_6;
     AGroup 15995 2 syms_7; AGroup 15997 2 syms_8; AGroup 15999 2 syms_9; AGroup 16001 2 syms_10;
     AGroup 16009 2 syms_11; SGroup 9525 2 syms_12; SGroup 7769 3 syms_13;
     SGroup 10246 4 syms_14; AGroup 16003 5 syms_15; SGroup 9072 14 syms_17]);
   (235776, 20, [AGroup 5 1 [sym_ppDirective]; AGroup 15761 1 [anon_sym_LBRACK];
     AGroup 15763 1 [anon_sym_LPAREN]; AGroup 15767 1 [anon_sym_POUND];
     AGroup 15781 1 [sym_kSpecialize]; AGroup 15787 1 [sym_kInherited]; AGroup 16229 1 [sym_kIf];
     AGroup 17864 1 [sym_kString]; AGroup 3 2 syms_5; AGroup 15765 2 syms_6;
     AGroup 15769 2 syms_7; AGroup 15771 2 syms_8; AGroup 15783 2 syms_11; AGroup 16221 2 syms_9;
     AGroup 16223 2 syms_10; SGroup 9180 2 syms_12; SGroup 7467 3 syms_13; SGroup 9826 4 syms_14;
     AGroup 16225 5 syms_15; SGroup 9076 14 syms_17]);
   (235867, 31, [AGroup 5 1 [sym_ppDirective]; AGroup 13347 1 [anon_sym_LBRACK];
     AGroup 13351 1 [aux_sym_ppUsesBlock_token1]; AGroup 13365 1 [sym_identifier];
     AGroup 13367 1 [sym_kGeneric]; AGroup 13369 1 [sym_kOperator]; AGroup 13373 1 [sym_kStrict];
     AGroup 13377 1 [sym_kCase]; AGroup 13379 1 [sym_kClass]; AGroup 13391 1 [sym_kProperty];
     AGroup 13395 1 [sym_kType]; AGroup 18570 1 [anon_sym_SEMI]; AGroup 18572 1 [sym_kEnd];
     SGroup 2 1 [sym__ppIf]; SGroup 6354 1 [sym__visibility]; SGroup 9779 1 [sym_ppBlock];
     SGroup 9835 1 [sym__declOperator]; SGroup 10247 1 [sym__declProc];
     SGroup 10617 1 [sym_rttiAttributes]; SGroup 10730 1 [aux_sym_rttiAttributes_repeat2];
     SGroup 13987 1 [aux_sym_genericArg_repeat1]; SGroup 14434 1 [sym_declVariant];
     SGroup 14783 1 [sym__declClass]; AGroup 3 2 syms_5; AGroup 13381 2 syms_65;
     AGroup 13393 2 syms_66; SGroup 5685 2 syms_68; SGroup 10490 3 syms_69;
     AGroup 13383 4 syms_3; AGroup 13371 6 syms_70; SGroup 6150 6 syms_71]);
   (235980, 31, [AGroup 5 1 [sym_ppDirective]; AGroup 13347 1 [anon_sym_LBRACK];
     AGroup 13351 1 [aux_sym_ppUsesBlock_token1]; AGroup 13365 1 [sym_identifier];
     AGroup 13367 1 [sym_kGeneric]; AGroup 13369 1 [sym_kOperator]; AGroup 13373 1 [sym_kStrict];
     AGroup 13377 1 [sym_kCase]; AGroup 13379 1 [sym_kClass]; AGroup 13391 1 [sym_kProperty];
     AGroup 13395 1 [sym_kType]; AGroup 18574 1 [anon_sym_SEMI]; AGroup 18576 1 [sym_kEnd];
     SGroup 2 1 [sym__ppIf]; SGroup 6354 1 [sym__visibility]; SGroup 9779 1 [sym_ppBlock];
     SGroup 9835 1 [sym__declOperator]; SGroup 10247 1 [sym__declProc];
     SGroup 10617 1 [sym_rttiAttributes]; SGroup 10730 1 [aux_sym_rttiAttributes_repeat2];
     SGroup 13987 1 [aux_sym_genericArg_repeat1]; SGroup 14434 1 [sym_declVariant];
     SGroup 14788 1 [sym__declClass]; AGroup 3 2 syms_5; AGroup 13381 2 syms_65;
     AGroup 13393 2 syms_66; SGroup 5685 2 syms_68; SGroup 10490 3 syms_69;
     AGroup 13383 4 syms_3; AGroup 13371 6 syms_70; SGroup 6150 6 syms_71]);
   (236093, 20, [AGroup 5 1 [sym_ppDirective]; AGroup 15895 1 [anon_sym_LBRACK];
     AGroup 15897 1 [anon_sym_LPAREN]; AGroup 15901 1 [anon_sym_POUND];
     AGroup 15915 1 [sym_kSpecialize]; AGroup 15919 1 [sym_kIf]; AGroup 15921 1 [sym_kInherited];
     AGroup 17230 1 [sym_kString]; AGroup 3 2 syms_5; AGroup 15899 2 syms_6;
     AGroup 15903 2 syms_7; AGroup 15905 2 syms_8; AGroup 15907 2 syms_9; AGroup 15909 2 syms_10;
     AGroup 15917 2 syms_11; SGroup 8314 2 syms_12; SGroup 7161 3 syms_13; SGroup 7951 4 syms_14;
     AGroup 15911 5 syms_15; SGroup 8003 14 syms_17]);
   (236184, 20, [AGroup 5 1 [sym_ppDirective]; AGroup 15831 1 [anon_sym_LBRACK];
     AGroup 15833 1 [anon_sym_LPAREN]; AGroup 15837 1 [anon_sym_POUND];
     AGroup 15851 1 [sym_kSpecialize]; AGroup 15855 1 [sym_kIf]; AGroup 15857 1 [sym_kInherited];
     AGroup 17312 1 [sym_kString]; AGroup 3 2 syms_5; AGroup 15835 2 syms_6;
     AGroup 15839 2 syms_7; AGroup 15841 2 syms_8; AGroup 15843 2 syms_9; AGroup 15845 2 syms_10;
     AGroup 15853 2 syms_11; SGroup 9267 2 syms_12; SGroup 7556 3 syms_13;
     SGroup 10097 4 syms_14; AGroup 15847 5 syms_15; SGroup 8649 14 syms_17]);
   (236275, 20, [AGroup 5 1 [sym_ppDirective]; AGroup 15761 1 [anon_sym_LBRACK];
     AGroup 15763 1 [anon_sym_LPAREN]; AGroup 15767 1 [anon_sym_POUND];
     AGroup 15781 1 [sym_kSpecialize]; AGroup 15787 1 [sym_kInherited]; AGroup 16229 1 [sym_kIf];
     AGroup 17864 1 [sym_kString]; AGroup 3 2 syms_5; AGroup 15765 2 syms_6;
     AGroup 15769 2 syms_7; AGroup 15771 2 syms_8; AGroup 15783 2 syms_11; AGroup 16221 2 syms_9;
     AGroup 16223 2 syms_10; SGroup 9180 2 syms_12; SGroup 7467 3 syms_13; SGroup 9840 4 syms_14;
     AGroup 16225 5 syms_15; SGroup 9076 14 syms_17]);
   (236366, 20, [AGroup 5 1 [sym_ppDirective]; AGroup 15761 1 [anon_sym_LBRACK];
     AGroup 15763 1 [anon_sym_LPAREN]; AGroup 15767 1 [anon_sym_POUND];
     AGroup 15781 1 [sym_kSpecialize]; AGroup 15787 1 [sym_kInherited]; AGroup 16229 1 [sym_kIf];
     AGroup 17864 1 [sym_kString]; AGroup 3 2 syms_5; AGroup 15765 2 syms_6;
     AGroup 15769 2 syms_7; AGroup 15771 2 syms_8; AGroup 15783 2 syms_11; AGroup 16221 2 syms_9;
     AGroup 16223 2 syms_10; SGroup 9180 2 syms_12; SGroup 7467 3 syms_13; SGroup 9841 4 syms_14;
     AGroup 16225 5 syms_15; SGroup 9076 14 syms_17]);
   (236457, 20, [AGroup 5 1 [sym_ppDirective]; AGroup 16715 1 [anon_sym_LBRACK];
     AGroup 16717 1 [anon_sym_LPAREN]; AGroup 16721 1 [anon_sym_POUND];
     AGroup 16735 1 [sym_kSpecialize]; AGroup 16739 1 [sym_kIf]; AGroup 16741 1 [sym_kInherited];
     AGroup 18201 1 [sym_kString]; AGroup 3 2 syms_5; AGroup 16719 2 syms_6;
     AGroup 16723 2 syms_7; AGroup 16725 2 syms_8; AGroup 16727 2 syms_9; AGroup 16729 2 syms_10;
     AGroup 16737 2 syms_11; SGroup 7901 2 syms_12; SGroup 7014 3 syms_13; SGroup 8390 4 syms_14;
     AGroup 16731 5 syms_15; SGroup 7757 14 syms_17]);
   (236548, 10, [AGroup 11641 1 [sym_kDispId]; AGroup 11643 1 [sym_kPublic]; AGroup 11645 1 [sym_kMessage];
     AGroup 11647 1 [sym_kDeprecated]; AGroup 11649 1 [sym_kExport]; AGroup 11651 1 [sym_kAlias];
     SGroup 4477 1 [aux_sym__procAttributeNoExt_repeat2]; SGroup 13632 1 [sym_procAttribute];
     AGroup 3 3 syms_1; AGroup 1016 39 syms_33]);
   (236619, 5, [AGroup 5 1 [sym_ppDirective]; AGroup 3 2 syms_5; AGroup 15473 4 syms_25;
     AGroup 15403 18 syms_36; AGroup 15471 25 syms_163]);
   (236680, 20, [AGroup 5 1 [sym_ppDirective]; AGroup 673 1 [anon_sym_LBRACK];
     AGroup 675 1 [anon_sym_LPAREN]; AGroup 679 1 [anon_sym_POUND];
     AGroup 695 1 [sym_kSpecialize]; AGroup 717 1 [sym_kInherited]; AGroup 723 1 [sym_kString];
     AGroup 15755 1 [sym_kIf]; AGroup 3 2 syms_5; AGroup 677 2 syms_6; AGroup 681 2 syms_7;
     AGroup 683 2 syms_8; AGroup 711 2 syms_11; AGroup 15747 2 syms_9; AGroup 15749 2 syms_10;
     SGroup 7426 2 syms_12; SGroup 6541 3 syms_13; SGroup 10275 4 syms_14;
     AGroup 18578 5 syms_15; SGroup 7316 14 syms_17]);
   (236771, 20, [AGroup 5 1 [sym_ppDirective]; AGroup 16247 1 [anon_sym_LBRACK];
     AGroup 16249 1 [anon_sym_LPAREN]; AGroup 16253 1 [anon_sym_POUND];
     AGroup 16267 1 [sym_kSpecialize]; AGroup 16271 1 [sym_kIf]; AGroup 16273 1 [sym_kInherited];
     AGroup 16745 1 [sym_kString]; AGroup 3 2 syms_5; AGroup 16251 2 syms_6;
     AGroup 16255 2 syms_7; AGroup 16257 2 syms_8; AGroup 16259 2 syms_9; AGroup 16261 2 syms_10;
     AGroup 16269 2 syms_11; SGroup 8258 2 syms_12; SGroup 7207 3 syms_13; SGroup 9851 4 syms_14;
     AGroup 16263 5 syms_15; SGroup 8006 14 syms_17]);
   (236862, 20, [AGroup 5 1 [sym_ppDirective]; AGroup 15987 1 [anon_sym_LBRACK];
     AGroup 15989 1 [anon_sym_LPAREN]; AGroup 15993 1 [anon_sym_POUND];
     AGroup 16007 1 [sym_kSpecialize]; AGroup 16011 1 [sym_kIf]; AGroup 16013 1 [sym_kInherited];
     AGroup 18254 1 [sym_kString]; AGroup 3 2 syms_5; AGroup 15991 2 syms_6;
     AGroup 15995 2 syms_7; AGroup 15997 2 syms_8; AGroup 15999 2 syms_9; AGroup 16001 2 syms_10;
     AGroup 16009 2 syms_11; SGroup 9525 2 syms_12; SGroup 7769 3 syms_13; SGroup 9852 4 syms_14;
     AGroup 16003 5 syms_15; SGroup 9072 14 syms_17]);
   (236953, 20, [AGroup 5 1 [sym_ppDirective]; AGroup 15895 1 [anon_sym_LBRACK];
     AGroup 15897 1 [anon_sym_LPAREN]; AGroup 15901 1 [anon_sym_POUND];
     AGroup 15915 1 [sym_kSpecialize]; AGroup 15919 1 [sym_kIf]; AGroup 15921 1 [sym_kInherited];
     AGroup 17230 1 [sym_kString]; AGroup 3 2 syms_5; AGroup 15899 2 syms_6;
     AGroup 15903 2 syms_7; AGroup 15905 2 syms_8; AGroup 15907 2 syms_9; AGroup 15909 2 syms_10;
     AGroup 15917 2 syms_11; SGroup 8314 2 syms_12; SGroup 7161 3 syms_13; SGroup 7988 4 syms_14;
     AGroup 15911 5 syms_15; SGroup 8003 14 syms_17]);
   (237044, 20, [AGroup 5 1 [sym_ppDirective]; AGroup 15895 1 [anon_sym_LBRACK];
     AGroup 15897 1 [anon_sym_LPAREN]; AGroup 15901 1 [anon_sym_POUND];
     AGroup 15915 1 [sym_kSpecialize]; AGroup 15919 1 [sym_kIf]; AGroup 15921 1 [sym_kInherited];
     AGroup 17230 1 [sym_kString]; AGroup 3 2 syms_5; AGroup 15899 2 syms_6;
     AGroup 15903 2 syms_7; AGroup 15905 2 syms_8; AGroup 15907 2 syms_9; AGroup 15909 2 syms_10;
     AGroup 15917 2 syms_11; SGroup 8314 2 syms_12; SGroup 7161 3 syms_13; SGroup 7996 4 syms_14;
     AGroup 15911 5 syms_15; SGroup 8003 14 syms_17]);
   (237135, 20, [AGroup 5 1 [sym_ppDirective]; AGroup 15761 1 [anon_sym_LBRACK];
     AGroup 15763 1 [anon_sym_LPAREN]; AGroup 15767 1 [anon_sym_POUND];
     AGroup 15781 1 [sym_kSpecialize]; AGroup 15787 1 [sym_kInherited]; AGroup 16229 1 [sym_kIf];
     AGroup 17864 1 [sym_kString]; AGroup 3 2 syms_5; AGroup 15765 2 syms_6;
     AGroup 15769 2 syms_7; AGroup 15771 2 syms_8; AGroup 15783 2 syms_11; AGroup 16221 2 syms_9;
     AGroup 16223 2 syms_10; SGroup 9180 2 syms_12; SGroup 7467 3 syms_13; SGroup 9853 4 syms_14;
     AGroup 16225 5 syms_15; SGroup 9076 14 syms_17]);
   (237226, 20, [AGroup 5 1 [sym_ppDirective]; AGroup 15959 1 [anon_sym_LBRACK];
     AGroup 15961 1 [anon_sym_LPAREN]; AGroup 15965 1 [anon_sym_POUND];
     AGroup 15977 1 [sym_kSpecialize]; AGroup 15981 1 [sym_kIf]; AGroup 15983 1 [sym_kInherited];
     AGroup 15985 1 [sym_kString]; AGroup 3 2 syms_5; AGroup 15963 2 syms_6;
     AGroup 15967 2 syms_7; AGroup 15969 2 syms_8; AGroup 15971 2 syms_9; AGroup 15973 2 syms_10;
     AGroup 15979 2 syms_11; SGroup 7734 2 syms_12; SGroup 6950 3 syms_13; SGroup 7388 4 syms_14;
     AGroup 15975 5 syms_15; SGroup 7373 14 syms_17]);
   (237317, 20, [AGroup 5 1 [sym_ppDirective]; AGroup 15895 1 [anon_sym_LBRACK];
     AGroup 15897 1 [anon_sym_LPAREN]; AGroup 15901 1 [anon_sym_POUND];
     AGroup 15915 1 [sym_kSpecialize]; AGroup 15919 1 [sym_kIf]; AGroup 15921 1 [sym_kInherited];
     AGroup 17230 1 [sym_kString]; AGroup 3 2 syms_5; AGroup 15899 2 syms_6;
     AGroup 15903 2 syms_7; AGroup 15905 2 syms_8; AGroup 15907 2 syms_9; AGroup 15909 2 syms_10;
     AGroup 15917 2 syms_11; SGroup 8314 2 syms_12; SGroup 7161 3 syms_13; SGroup 8055 4 syms_14;
     AGroup 15911 5 syms_15; SGroup 8003 14 syms_17]);
   (237408, 5, [AGroup 5 1 [sym_ppDirective]; AGroup 3 2 syms_5; AGroup 15439 4 syms_25;
     AGroup 15403 18 syms_36; AGroup 15437 25 syms_154]);
   (237469, 21, [AGroup 5 1 [sym_ppDirective]; AGroup 15895 1 [anon_sym_LBRACK];
     AGroup 15897 1 [anon_sym_LPAREN]; AGroup 15901 1 [anon_sym_POUND]; AGroup 15909 1 [sym_kAt];
     AGroup 15915 1 [sym_kSpecialize]; AGroup 15919 1 [sym_kIf]; AGroup 15921 1 [sym_kInherited];
     AGroup 17230 1 [sym_kString]; AGroup 18580 1 [sym_kNot]; AGroup 3 2 syms_5;
     AGroup 15899 2 syms_6; AGroup 15903 2 syms_7; AGroup 15905 2 syms_8; AGroup 15907 2 syms_9;
     AGroup 15917 2 syms_11; SGroup 8314 2 syms_12; SGroup 7161 3 syms_13; SGroup 8055 4 syms_14;
     AGroup 15911 5 syms_15; SGroup 8003 14 syms_17]);
   (237562, 20, [AGroup 5 1 [sym_ppDirective]; AGroup 15761 1 [anon_sym_LBRACK];
     AGroup 15763 1 [anon_sym_LPAREN]; AGroup 15767 1 [anon_sym_POUND];
     AGroup 15781 1 [sym_kSpecialize]; AGroup 15787 1 [sym_kInherited]; AGroup 16229 1 [sym_kIf];
     AGroup 17864 1 [sym_kString]; AGroup 3 2 syms_5; AGroup 15765 2 syms_6;
     AGroup 15769 2 syms_7; AGroup 15771 2 syms_8; AGroup 15783 2 syms_11; AGroup 16221 2 syms_9;
     AGroup 16223 2 syms_10; SGroup 9180 2 syms_12; SGroup 7467 3 syms_13; SGroup 9860 4 syms_14;
     AGroup 16225 5 syms_15; SGroup 9076 14 syms_17]);
   (237653, 20, [AGroup 5 1 [sym_ppDirective]; AGroup 15761 1 [anon_sym_LBRACK];
     AGroup 15763 1 [anon_sym_LPAREN]; AGroup 15767 1 [anon_sym_POUND];
     AGroup 15781 1 [sym_kSpecialize]; AGroup 15787 1 [sym_kInherited]; AGroup 16229 1 [sym_kIf];
     AGroup 17864 1 [sym_kString]; AGroup 3 2 syms_5; AGroup 15765 2 syms_6;
     AGroup 15769 2 syms_7; AGroup 15771 2 syms_8; AGroup 15783 2 syms_11; AGroup 16221 2 syms_9;
     AGroup 16223 2 syms_10; SGroup 9180 2 syms_12; SGroup 7467 3 syms_13; SGroup 9861 4 syms_14;
     AGroup 16225 5 syms_15; SGroup 9076 14 syms_17]);
   (237744, 20, [AGroup 5 1 [sym_ppDirective]; AGroup 16715 1 [anon_sym_LBRACK];
     AGroup 16717 1 [anon_sym_LPAREN]; AGroup 16721 1 [anon_sym_POUND];
     AGroup 16735 1 [sym_kSpecialize]; AGroup 16739 1 [sym_kIf]; AGroup 16741 1 [sym_kInherited];
     AGroup 18201 1 [sym_kString]; AGroup 3 2 syms_5; AGroup 16719 2 syms_6;
     AGroup 16723 2 syms_7; AGroup 16725 2 syms_8; AGroup 16727 2 syms_9; AGroup 16729 2 syms_10;
     AGroup 16737 2 syms_11; SGroup 7901 2 syms_12; SGroup 7014 3 syms_13; SGroup 8415 4 syms_14;
     AGroup 16731 5 syms_15; SGroup 7757 14 syms_17]);
   (237835, 20, [AGroup 5 1 [sym_ppDirective]; AGroup 15895 1 [anon_sym_LBRACK];
     AGroup 15897 1 [anon_sym_LPAREN]; AGroup 15901 1 [anon_sym_POUND];
     AGroup 15915 1 [sym_kSpecialize]; AGroup 15919 1 [sym_kIf]; AGroup 15921 1 [sym_kInherited];
     AGroup 17230 1 [sym_kString]; AGroup 3 2 syms_5; AGroup 15899 2 syms_6;
     AGroup 15903 2 syms_7; AGroup 15905 2 syms_8; AGroup 15907 2 syms_9; AGroup 15909 2 syms_10;
     AGroup 15917 2 syms_11; SGroup 8314 2 syms_12; SGroup 7161 3 syms_13; SGroup 8111 4 syms_14;
     AGroup 15911 5 syms_15; SGroup 8003 14 syms_17]);
   (237926, 10, [AGroup 11641 1 [sym_kDispId]; AGroup 11643 1 [sym_kPublic]; AGroup 11645 1 [sym_kMessage];
     AGroup 11647 1 [sym_kDeprecated]; AGroup 11649 1 [sym_kExport]; AGroup 11651 1 [sym_kAlias];
     SGroup 4477 1 [aux_sym__procAttributeNoExt_repeat2]; SGroup 13977 1 [sym_procAttribute];
     AGroup 3 3 syms_1; AGroup 1016 39 syms_33]);
   (237997, 20, [AGroup 5 1 [sym_ppDirective]; AGroup 15755 1 [sym_kIf]; AGroup 15895 1 [anon_sym_LBRACK];
     AGroup 15897 1 [anon_sym_LPAREN]; AGroup 15901 1 [anon_sym_POUND];
     AGroup 15915 1 [sym_kSpecialize]; AGroup 15921 1 [sym_kInherited];
     AGroup 17230 1 [sym_kString]; AGroup 3 2 syms_5; AGroup 15747 2 syms_9;
     AGroup 15749 2 syms_10; AGroup 15899 2 syms_6; AGroup 15903 2 syms_7; AGroup 15905 2 syms_8;
     AGroup 15917 2 syms_11; SGroup 8314 2 syms_12; SGroup 7161 3 syms_13;
     SGroup 10273 4 syms_14; AGroup 18582 5 syms_15; SGroup 8119 14 syms_17]);
   (238088, 20, [AGroup 5 1 [sym_ppDirective]; AGroup 16247 1 [anon_sym_LBRACK];
     AGroup 16249 1 [anon_sym_LPAREN]; AGroup 16253 1 [anon_sym_POUND];
     AGroup 16267 1 [sym_kSpecialize]; AGroup 16271 1 [sym_kIf]; AGroup 16273 1 [sym_kInherited];
     AGroup 16745 1 [sym_kString]; AGroup 3 2 syms_5; AGroup 16251 2 syms_6;
     AGroup 16255 2 syms_7; AGroup 16257 2 syms_8; AGroup 16259 2 syms_9; AGroup 16261 2 syms_10;
     AGroup 16269 2 syms_11; SGroup 8258 2 syms_12; SGroup 7207 3 syms_13; SGroup 9866 4 syms_14;
     AGroup 16263 5 syms_15; SGroup 8006 14 syms_17]);
   (238179, 20, [AGroup 5 1 [sym_ppDirective]; AGroup 15987 1 [anon_sym_LBRACK];
     AGroup 15989 1 [anon_sym_LPAREN]; AGroup 15993 1 [anon_sym_POUND];
     AGroup 16007 1 [sym_kSpecialize]; AGroup 16011 1 [sym_kIf]; AGroup 16013 1 [sym_kInherited];
     AGroup 18254 1 [sym_kString]; AGroup 3 2 syms_5; AGroup 15991 2 syms_6;
     AGroup 15995 2 syms_7; AGroup 15997 2 syms_8; AGroup 15999 2 syms_9; AGroup 16001 2 syms_10;
     AGroup 16009 2 syms_11; SGroup 9525 2 syms_12; SGroup 7769 3 syms_13; SGroup 9869 4 syms_14;
     AGroup 16003 5 syms_15; SGroup 9072 14 syms_17]);
   (238270, 5, [AGroup 5 1 [sym_ppDirective]; AGroup 3 2 syms_5; AGroup 15504 4 syms_25;
     AGroup 15403 18 syms_36; AGroup 15502 25 syms_163]);
   (238331, 20, [AGroup 5 1 [sym_ppDirective]; AGroup 15761 1 [anon_sym_LBRACK];
     AGroup 15763 1 [anon_sym_LPAREN]; AGroup 15767 1 [anon_sym_POUND];
     AGroup 15781 1 [sym_kSpecialize]; AGroup 15787 1 [sym_kInherited]; AGroup 16229 1 [sym_kIf];
     AGroup 17864 1 [sym_kString]; AGroup 3 2 syms_5; AGroup 15765 2 syms_6;
     AGroup 15769 2 syms_7; AGroup 15771 2 syms_8; AGroup 15783 2 syms_11; AGroup 16221 2 syms_9;
     AGroup 16223 2 syms_10; SGroup 9180 2 syms_12; SGroup 7467 3 syms_13; SGroup 9871 4 syms_14;
     AGroup 16225 5 syms_15; SGroup 9076 14 syms_17])
  ].

(** States 5359 to 5458. *)
Definition small_runs_5359 : list small_run :=
  [
   (238422, 5, [AGroup 5 1 [sym_ppDirective]; AGroup 3 2 syms_5; AGroup 15488 4 syms_25;
     AGroup 15403 18 syms_36; AGroup 15486 25 syms_154]);
   (238483, 5, [AGroup 5 1 [sym_ppDirective]; AGroup 3 2 syms_5; AGroup 15484 4 syms_25;
     AGroup 15403 18 syms_36; AGroup 15482 25 syms_163]);
   (238544, 20, [AGroup 5 1 [sym_ppDirective]; AGroup 14735 1 [anon_sym_LBRACK];
     AGroup 14737 1 [anon_sym_LPAREN]; AGroup 14741 1 [anon_sym_POUND];
     AGroup 14755 1 [sym_kSpecialize]; AGroup 14759 1 [sym_kIf]; AGroup 14761 1 [sym_kInherited];
     AGroup 14763 1 [sym_kString]; AGroup 3 2 syms_5; AGroup 14739 2 syms_6;
     AGroup 14743 2 syms_7; AGroup 14745 2 syms_8; AGroup 14749 2 syms_9; AGroup 14751 2 syms_10;
     AGroup 14757 2 syms_11; SGroup 3618 2 syms_12; SGroup 2833 3 syms_13; SGroup 3395 4 syms_14;
     AGroup 14753 5 syms_15; SGroup 3466 14 syms_17]);
   (238635, 20, [AGroup 5 1 [sym_ppDirective]; AGroup 15895 1 [anon_sym_LBRACK];
     AGroup 15897 1 [anon_sym_LPAREN]; AGroup 15901 1 [anon_sym_POUND];
     AGroup 15915 1 [sym_kSpecialize]; AGroup 15919 1 [sym_kIf]; AGroup 15921 1 [sym_kInherited];
     AGroup 17230 1 [sym_kString]; AGroup 3 2 syms_5; AGroup 15899 2 syms_6;
     AGroup 15903 2 syms_7; AGroup 15905 2 syms_8; AGroup 15907 2 syms_9; AGroup 15909 2 syms_10;
     AGroup 15917 2 syms_11; SGroup 8314 2 syms_12; SGroup 7161 3 syms_13; SGroup 7938 4 syms_14;
     AGroup 15911 5 syms_15; SGroup 8003 14 syms_17]);
   (238726, 20, [AGroup 5 1 [sym_ppDirective]; AGroup 15761 1 [anon_sym_LBRACK];
     AGroup 15763 1 [anon_sym_LPAREN]; AGroup 15767 1 [anon_sym_POUND];
     AGroup 15781 1 [sym_kSpecialize]; AGroup 15787 1 [sym_kInherited]; AGroup 16229 1 [sym_kIf];
     AGroup 17864 1 [sym_kString]; AGroup 3 2 syms_5; AGroup 15765 2 syms_6;
     AGroup 15769 2 syms_7; AGroup 15771 2 syms_8; AGroup 15783 2 syms_11; AGroup 16221 2 syms_9;
     AGroup 16223 2 syms_10; SGroup 9180 2 syms_12; SGroup 7467 3 syms_13; SGroup 9882 4 syms_14;
     AGroup 16225 5 syms_15; SGroup 9076 14 syms_17]);
   (238817, 20, [AGroup 5 1 [sym_ppDirective]; AGroup 15761 1 [anon_sym_LBRACK];
     AGroup 15763 1 [anon_sym_LPAREN]; AGroup 15767 1 [anon_sym_POUND];
     AGroup 15781 1 [sym_kSpecialize]; AGroup 15787 1 [sym_kInherited]; AGroup 16229 1 [sym_kIf];
     AGroup 17864 1 [sym_kString]; AGroup 3 2 syms_5; AGroup 15765 2 syms_6;
     AGroup 15769 2 syms_7; AGroup 15771 2 syms_8; AGroup 15783 2 syms_11; AGroup 16221 2 syms_9;
     AGroup 16223 2 syms_10; SGroup 9180 2 syms_12; SGroup 7467 3 syms_13; SGroup 9883 4 syms_14;
     AGroup 16225 5 syms_15; SGroup 9076 14 syms_17]);
   (238908, 20, [AGroup 5 1 [sym_ppDirective]; AGroup 16715 1 [anon_sym_LBRACK];
     AGroup 16717 1 [anon_sym_LPAREN]; AGroup 16721 1 [anon_sym_POUND];
     AGroup 16735 1 [sym_kSpecialize]; AGroup 16739 1 [sym_kIf]; AGroup 16741 1 [sym_kInherited];
     AGroup 18201 1 [sym_kString]; AGroup 3 2 syms_5; AGroup 16719 2 syms_6;
     AGroup 16723 2 syms_7; AGroup 16725 2 syms_8; AGroup 16727 2 syms_9; AGroup 16729 2 syms_10;
     AGroup 16737 2 syms_11; SGroup 7901 2 syms_12; SGroup 7014 3 syms_13; SGroup 8427 4 syms_14;
     AGroup 16731 5 syms_15; SGroup 7757 14 syms_17]);
   (238999, 10, [AGroup 11641 1 [sym_kDispId]; AGroup 11643 1 [sym_kPublic]; AGroup 11645 1 [sym_kMessage];
     AGroup 11647 1 [sym_kDeprecated]; AGroup 11649 1 [sym_kExport]; AGroup 11651 1 [sym_kAlias];
     SGroup 4477 1 [aux_sym__procAttributeNoExt_repeat2]; SGroup 13042 1 [sym_procAttribute];
     AGroup 3 3 syms_1; AGroup 1016 39 syms_33]);
   (239070, 20, [AGroup 5 1 [sym_ppDirective]; AGroup 16247 1 [anon_sym_LBRACK];
     AGroup 16249 1 [anon_sym_LPAREN]; AGroup 16253 1 [anon_sym_POUND];
     AGroup 16267 1 [sym_kSpecialize]; AGroup 16271 1 [sym_kIf]; AGroup 16273 1 [sym_kInherited];
     AGroup 16745 1 [sym_kString]; AGroup 3 2 syms_5; AGroup 16251 2 syms_6;
     AGroup 16255 2 syms_7; AGroup 16257 2 syms_8; AGroup 16259 2 syms_9; AGroup 16261 2 syms_10;
     AGroup 16269 2 syms_11; SGroup 8258 2 syms_12; SGroup 7207 3 syms_13; SGroup 9893 4 syms_14;
     AGroup 16263 5 syms_15; SGroup 8006 14 syms_17]);
   (239161, 20, [AGroup 5 1 [sym_ppDirective]; AGroup 15987 1 [anon_sym_LBRACK];
     AGroup 15989 1 [anon_sym_LPAREN]; AGroup 15993 1 [anon_sym_POUND];
     AGroup 16007 1 [sym_kSpecialize]; AGroup 16011 1 [sym_kIf]; AGroup 16013 1 [sym_kInherited];
     AGroup 18254 1 [sym_kString]; AGroup 3 2 syms_5; AGroup 15991 2 syms_6;
     AGroup 15995 2 syms_7; AGroup 15997 2 syms_8; AGroup 15999 2 syms_9; AGroup 16001 2 syms_10;
     AGroup 16009 2 syms_11; SGroup 9525 2 syms_12; SGroup 7769 3 syms_13; SGroup 9895 4 syms_14;
     AGroup 16003 5 syms_15; SGroup 9072 14 syms_17]);
   (239252, 5, [AGroup 5 1 [sym_ppDirective]; AGroup 3 2 syms_5; AGroup 15492 4 syms_25;
     AGroup 15403 18 syms_36; AGroup 15490 25 syms_163]);
   (239313, 5, [AGroup 5 1 [sym_ppDirective]; AGroup 3 2 syms_5; AGroup 15401 4 syms_25;
     AGroup 15403 18 syms_36; AGroup 15399 25 syms_163]);
   (239374, 20, [AGroup 5 1 [sym_ppDirective]; AGroup 15761 1 [anon_sym_LBRACK];
     AGroup 15763 1 [anon_sym_LPAREN]; AGroup 15767 1 [anon_sym_POUND];
     AGroup 15781 1 [sym_kSpecialize]; AGroup 15787 1 [sym_kInherited]; AGroup 16229 1 [sym_kIf];
     AGroup 17864 1 [sym_kString]; AGroup 3 2 syms_5; AGroup 15765 2 syms_6;
     AGroup 15769 2 syms_7; AGroup 15771 2 syms_8; AGroup 15783 2 syms_11; AGroup 16221 2 syms_9;
     AGroup 16223 2 syms_10; SGroup 9180 2 syms_12; SGroup 7467 3 syms_13; SGroup 9896 4 syms_14;
     AGroup 16225 5 syms_15; SGroup 9076 14 syms_17]);
   (239465, 5, [AGroup 5 1 [sym_ppDirective]; AGroup 3 2 syms_5; AGroup 15439 4 syms_25;
     AGroup 15403 18 syms_36; AGroup 15437 25 syms_163]);
   (239526, 20, [AGroup 5 1 [sym_ppDirective]; AGroup 16247 1 [anon_sym_LBRACK];
     AGroup 16249 1 [anon_sym_LPAREN]; AGroup 16253 1 [anon_sym_POUND];
     AGroup 16267 1 [sym_kSpecialize]; AGroup 16271 1 [sym_kIf]; AGroup 16273 1 [sym_kInherited];
     AGroup 16745 1 [sym_kString]; AGroup 3 2 syms_5; AGroup 16251 2 syms_6;
     AGroup 16255 2 syms_7; AGroup 16257 2 syms_8; AGroup 16259 2 syms_9; AGroup 16261 2 syms_10;
     AGroup 16269 2 syms_11; SGroup 8258 2 syms_12; SGroup 7207 3 syms_13; SGroup 8113 4 syms_14;
     AGroup 16263 5 syms_15; SGroup 8006 14 syms_17]);
   (239617, 5, [AGroup 5 1 [sym_ppDirective]; AGroup 3 2 syms_5; AGroup 15488 4 syms_25;
     AGroup 15403 18 syms_36; AGroup 15486 25 syms_163]);
   (239678, 20, [AGroup 5 1 [sym_ppDirective]; AGroup 15761 1 [anon_sym_LBRACK];
     AGroup 15763 1 [anon_sym_LPAREN]; AGroup 15767 1 [anon_sym_POUND];
     AGroup 15781 1 [sym_kSpecialize]; AGroup 15787 1 [sym_kInherited]; AGroup 16229 1 [sym_kIf];
     AGroup 17864 1 [sym_kString]; AGroup 3 2 syms_5; AGroup 15765 2 syms_6;
     AGroup 15769 2 syms_7; AGroup 15771 2 syms_8; AGroup 15783 2 syms_11; AGroup 16221 2 syms_9;
     AGroup 16223 2 syms_10; SGroup 9180 2 syms_12; SGroup 7467 3 syms_13; SGroup 9909 4 syms_14;
     AGroup 16225 5 syms_15; SGroup 9076 14 syms_17]);
   (239769, 20, [AGroup 5 1 [sym_ppDirective]; AGroup 15761 1 [anon_sym_LBRACK];
     AGroup 15763 1 [anon_sym_LPAREN]; AGroup 15767 1 [anon_sym_POUND];
     AGroup 15781 1 [sym_kSpecialize]; AGroup 15787 1 [sym_kInherited]; AGroup 16229 1 [sym_kIf];
     AGroup 17864 1 [sym_kString]; AGroup 3 2 syms_5; AGroup 15765 2 syms_6;
     AGroup 15769 2 syms_7; AGroup 15771 2 syms_8; AGroup 15783 2 syms_11; AGroup 16221 2 syms_9;
     AGroup 16223 2 syms_10; SGroup 9180 2 syms_12; SGroup 7467 3 syms_13; SGroup 9910 4 syms_14;
     AGroup 16225 5 syms_15; SGroup 9076 14 syms_17]);
   (239860, 20, [AGroup 5 1 [sym_ppDirective]; AGroup 16715 1 [anon_sym_LBRACK];
     AGroup 16717 1 [anon_sym_LPAREN]; AGroup 16721 1 [anon_sym_POUND];
     AGroup 16735 1 [sym_kSpecialize]; AGroup 16739 1 [sym_kIf]; AGroup 16741 1 [sym_kInherited];
     AGroup 18201 1 [sym_kString]; AGroup 3 2 syms_5; AGroup 16719 2 syms_6;
     AGroup 16723 2 syms_7; AGroup 16725 2 syms_8; AGroup 16727 2 syms_9; AGroup 16729 2 syms_10;
     AGroup 16737 2 syms_11; SGroup 7901 2 syms_12; SGroup 7014 3 syms_13; SGroup 8431 4 syms_14;
     AGroup 16731 5 syms_15; SGroup 7757 14 syms_17]);
   (239951, 20, [AGroup 5 1 [sym_ppDirective]; AGroup 15895 1 [anon_sym_LBRACK];
     AGroup 15897 1 [anon_sym_LPAREN]; AGroup 15901 1 [anon_sym_POUND];
     AGroup 15915 1 [sym_kSpecialize]; AGroup 15919 1 [sym_kIf]; AGroup 15921 1 [sym_kInherited];
     AGroup 17230 1 [sym_kString]; AGroup 3 2 syms_5; AGroup 15899 2 syms_6;
     AGroup 15903 2 syms_7; AGroup 15905 2 syms_8; AGroup 15907 2 syms_9; AGroup 15909 2 syms_10;
     AGroup 15917 2 syms_11; SGroup 8314 2 syms_12; SGroup 7161 3 syms_13; SGroup 7983 4 syms_14;
     AGroup 15911 5 syms_15; SGroup 8003 14 syms_17]);
   (240042, 10, [AGroup 11641 1 [sym_kDispId]; AGroup 11643 1 [sym_kPublic]; AGroup 11645 1 [sym_kMessage];
     AGroup 11647 1 [sym_kDeprecated]; AGroup 11649 1 [sym_kExport]; AGroup 11651 1 [sym_kAlias];
     SGroup 4477 1 [aux_sym__procAttributeNoExt_repeat2]; SGroup 13117 1 [sym_procAttribute];
     AGroup 3 3 syms_1; AGroup 1016 39 syms_33]);
   (240113, 20, [AGroup 5 1 [sym_ppDirective]; AGroup 16247 1 [anon_sym_LBRACK];
     AGroup 16249 1 [anon_sym_LPAREN]; AGroup 16253 1 [anon_sym_POUND];
     AGroup 16267 1 [sym_kSpecialize]; AGroup 16271 1 [sym_kIf]; AGroup 16273 1 [sym_kInherited];
     AGroup 16745 1 [sym_kString]; AGroup 3 2 syms_5; AGroup 16251 2 syms_6;
     AGroup 16255 2 syms_7; AGroup 16257 2 syms_8; AGroup 16259 2 syms_9; AGroup 16261 2 syms_10;
     AGroup 16269 2 syms_11; SGroup 8258 2 syms_12; SGroup 7207 3 syms_13; SGroup 9917 4 syms_14;
     AGroup 16263 5 syms_15; SGroup 8006 14 syms_17]);
   (240204, 20, [AGroup 5 1 [sym_ppDirective]; AGroup 15987 1 [anon_sym_LBRACK];
     AGroup 15989 1 [anon_sym_LPAREN]; AGroup 15993 1 [anon_sym_POUND];
     AGroup 16007 1 [sym_kSpecialize]; AGroup 16011 1 [sym_kIf]; AGroup 16013 1 [sym_kInherited];
     AGroup 18254 1 [sym_kString]; AGroup 3 2 syms_5; AGroup 15991 2 syms_6;
     AGroup 15995 2 syms_7; AGroup 15997 2 syms_8; AGroup 15999 2 syms_9; AGroup 16001 2 syms_10;
     AGroup 16009 2 syms_11; SGroup 9525 2 syms_12; SGroup 7769 3 syms_13; SGroup 9919 4 syms_14;
     AGroup 16003 5 syms_15; SGroup 9072 14 syms_17]);
   (240295, 5, [AGroup 5 1 [sym_ppDirective]; AGroup 3 2 syms_5; AGroup 15496 4 syms_25;
     AGroup 15403 18 syms_36; AGroup 15494 25 syms_163]);
   (240356, 20, [AGroup 5 1 [sym_ppDirective]; AGroup 15761 1 [anon_sym_LBRACK];
     AGroup 15763 1 [anon_sym_LPAREN]; AGroup 15767 1 [anon_sym_POUND];
     AGroup 15781 1 [sym_kSpecialize]; AGroup 15787 1 [sym_kInherited]; AGroup 16229 1 [sym_kIf];
     AGroup 17864 1 [sym_kString]; AGroup 3 2 syms_5; AGroup 15765 2 syms_6;
     AGroup 15769 2 syms_7; AGroup 15771 2 syms_8; AGroup 15783 2 syms_11; AGroup 16221 2 syms_9;
     AGroup 16223 2 syms_10; SGroup 9180 2 syms_12; SGroup 7467 3 syms_13; SGroup 9920 4 syms_14;
     AGroup 16225 5 syms_15; SGroup 9076 14 syms_17]);
   (240447, 4, [AGroup 5 1 [sym_ppDirective]; AGroup 3 2 syms_5; AGroup 15295 4 syms_25;
     AGroup 15293 43 syms_164]);
   (240506, 20, [AGroup 5 1 [sym_ppDirective]; AGroup 9754 1 [anon_sym_LBRACK];
     AGroup 9756 1 [anon_sym_LPAREN]; AGroup 9760 1 [anon_sym_POUND];
     AGroup 9776 1 [sym_kSpecialize]; AGroup 9794 1 [sym_kInherited];
     AGroup 9800 1 [sym_kString]; AGroup 15469 1 [sym_kIf]; AGroup 3 2 syms_5;
     AGroup 9758 2 syms_6; AGroup 9762 2 syms_7; AGroup 9764 2 syms_8; AGroup 9766 2 syms_9;
     AGroup 9768 2 syms_10; AGroup 9788 2 syms_11; SGroup 7474 2 syms_12; SGroup 6591 3 syms_13;
     SGroup 7322 4 syms_14; AGroup 9770 5 syms_15; SGroup 7326 14 syms_17]);
   (240597, 20, [AGroup 5 1 [sym_ppDirective]; AGroup 16337 1 [anon_sym_LBRACK];
     AGroup 16339 1 [anon_sym_LPAREN]; AGroup 16343 1 [anon_sym_POUND];
     AGroup 16357 1 [sym_kSpecialize]; AGroup 16361 1 [sym_kIf]; AGroup 16363 1 [sym_kInherited];
     AGroup 17202 1 [sym_kString]; AGroup 3 2 syms_5; AGroup 16341 2 syms_6;
     AGroup 16345 2 syms_7; AGroup 16347 2 syms_8; AGroup 16349 2 syms_9; AGroup 16351 2 syms_10;
     AGroup 16359 2 syms_11; SGroup 7828 2 syms_12; SGroup 7011 3 syms_13; SGroup 7561 4 syms_14;
     AGroup 16353 5 syms_15; SGroup 7566 14 syms_17]);
   (240688, 20, [AGroup 5 1 [sym_ppDirective]; AGroup 15761 1 [anon_sym_LBRACK];
     AGroup 15763 1 [anon_sym_LPAREN]; AGroup 15767 1 [anon_sym_POUND];
     AGroup 15781 1 [sym_kSpecialize]; AGroup 15787 1 [sym_kInherited]; AGroup 16229 1 [sym_kIf];
     AGroup 17864 1 [sym_kString]; AGroup 3 2 syms_5; AGroup 15765 2 syms_6;
     AGroup 15769 2 syms_7; AGroup 15771 2 syms_8; AGroup 15783 2 syms_11; AGroup 16221 2 syms_9;
     AGroup 16223 2 syms_10; SGroup 9180 2 syms_12; SGroup 7467 3 syms_13; SGroup 9931 4 syms_14;
     AGroup 16225 5 syms_15; SGroup 9076 14 syms_17]);
   (240779, 20, [AGroup 5 1 [sym_ppDirective]; AGroup 15761 1 [anon_sym_LBRACK];
     AGroup 15763 1 [anon_sym_LPAREN]; AGroup 15767 1 [anon_sym_POUND];
     AGroup 15781 1 [sym_kSpecialize]; AGroup 15787 1 [sym_kInherited]; AGroup 16229 1 [sym_kIf];
     AGroup 17864 1 [sym_kString]; AGroup 3 2 syms_5; AGroup 15765 2 syms_6;
     AGroup 15769 2 syms_7; AGroup 15771 2 syms_8; AGroup 15783 2 syms_11; AGroup 16221 2 syms_9;
     AGroup 16223 2 syms_10; SGroup 9180 2 syms_12; SGroup 7467 3 syms_13; SGroup 9932 4 syms_14;
     AGroup 16225 5 syms_15; SGroup 9076 14 syms_17]);
   (240870, 20, [AGroup 5 1 [sym_ppDirective]; AGroup 16715 1 [anon_sym_LBRACK];
     AGroup 16717 1 [anon_sym_LPAREN]; AGroup 16721 1 [anon_sym_POUND];
     AGroup 16735 1 [sym_kSpecialize]; AGroup 16739 1 [sym_kIf]; AGroup 16741 1 [sym_kInherited];
     AGroup 18201 1 [sym_kString]; AGroup 3 2 syms_5; AGroup 16719 2 syms_6;
     AGroup 16723 2 syms_7; AGroup 16725 2 syms_8; AGroup 16727 2 syms_9; AGroup 16729 2 syms_10;
     AGroup 16737 2 syms_11; SGroup 7901 2 syms_12; SGroup 7014 3 syms_13; SGroup 8435 4 syms_14;
     AGroup 16731 5 syms_15; SGroup 7757 14 syms_17]);
   (240961, 10, [AGroup 11641 1 [sym_kDispId]; AGroup 11643 1 [sym_kPublic]; AGroup 11645 1 [sym_kMessage];
     AGroup 11647 1 [sym_kDeprecated]; AGroup 11649 1 [sym_kExport]; AGroup 11651 1 [sym_kAlias];
     SGroup 4477 1 [aux_sym__procAttributeNoExt_repeat2]; SGroup 13193 1 [sym_procAttribute];
     AGroup 3 3 syms_1; AGroup 1016 39 syms_33]);
   (241032, 20, [AGroup 5 1 [sym_ppDirective]; AGroup 16247 1 [anon_sym_LBRACK];
     AGroup 16249 1 [anon_sym_LPAREN]; AGroup 16253 1 [anon_sym_POUND];
     AGroup 16267 1 [sym_kSpecialize]; AGroup 16271 1 [sym_kIf]; AGroup 16273 1 [sym_kInherited];
     AGroup 16745 1 [sym_kString]; AGroup 3 2 syms_5; AGroup 16251 2 syms_6;
     AGroup 16255 2 syms_7; AGroup 16257 2 syms_8; AGroup 16259 2 syms_9; AGroup 16261 2 syms_10;
     AGroup 16269 2 syms_11; SGroup 8258 2 syms_12; SGroup 7207 3 syms_13; SGroup 9937 4 syms_14;
     AGroup 16263 5 syms_15; SGroup 8006 14 syms_17]);
   (241123, 20, [AGroup 5 1 [sym_ppDirective]; AGroup 15987 1 [anon_sym_LBRACK];
     AGroup 15989 1 [anon_sym_LPAREN]; AGroup 15993 1 [anon_sym_POUND];
     AGroup 16007 1 [sym_kSpecialize]; AGroup 16011 1 [sym_kIf]; AGroup 16013 1 [sym_kInherited];
     AGroup 18254 1 [sym_kString]; AGroup 3 2 syms_5; AGroup 15991 2 syms_6;
     AGroup 15995 2 syms_7; AGroup 15997 2 syms_8; AGroup 15999 2 syms_9; AGroup 16001 2 syms_10;
     AGroup 16009 2 syms_11; SGroup 9525 2 syms_12; SGroup 7769 3 syms_13; SGroup 9938 4 syms_14;
     AGroup 16003 5 syms_15; SGroup 9072 14 syms_17]);
   (241214, 20, [AGroup 5 1 [sym_ppDirective]; AGroup 15761 1 [anon_sym_LBRACK];
     AGroup 15763 1 [anon_sym_LPAREN]; AGroup 15767 1 [anon_sym_POUND];
     AGroup 15781 1 [sym_kSpecialize]; AGroup 15787 1 [sym_kInherited]; AGroup 16229 1 [sym_kIf];
     AGroup 17864 1 [sym_kString]; AGroup 3 2 syms_5; AGroup 15765 2 syms_6;
     AGroup 15769 2 syms_7; AGroup 15771 2 syms_8; AGroup 15783 2 syms_11; AGroup 16221 2 syms_9;
     AGroup 16223 2 syms_10; SGroup 9180 2 syms_12; SGroup 7467 3 syms_13; SGroup 9940 4 syms_14;
     AGroup 16225 5 syms_15; SGroup 9076 14 syms_17]);
   (241305, 4, [AGroup 5 1 [sym_ppDirective]; AGroup 3 2 syms_5; AGroup 15355 4 syms_25;
     AGroup 15353 43 syms_164]);
   (241364, 20, [AGroup 5 1 [sym_ppDirective]; AGroup 15761 1 [anon_sym_LBRACK];
     AGroup 15763 1 [anon_sym_LPAREN]; AGroup 15767 1 [anon_sym_POUND];
     AGroup 15781 1 [sym_kSpecialize]; AGroup 15787 1 [sym_kInherited]; AGroup 16229 1 [sym_kIf];
     AGroup 17864 1 [sym_kString]; AGroup 3 2 syms_5; AGroup 15765 2 syms_6;
     AGroup 15769 2 syms_7; AGroup 15771 2 syms_8; AGroup 15783 2 syms_11; AGroup 16221 2 syms_9;
     AGroup 16223 2 syms_10; SGroup 9180 2 syms_12; SGroup 7467 3 syms_13; SGroup 9953 4 syms_14;
     AGroup 16225 5 syms_15; SGroup 9076 14 syms_17]);
   (241455, 20, [AGroup 5 1 [sym_ppDirective]; AGroup 15761 1 [anon_sym_LBRACK];
     AGroup 15763 1 [anon_sym_LPAREN]; AGroup 15767 1 [anon_sym_POUND];
     AGroup 15781 1 [sym_kSpecialize]; AGroup 15787 1 [sym_kInherited]; AGroup 16229 1 [sym_kIf];
     AGroup 17864 1 [sym_kString]; AGroup 3 2 syms_5; AGroup 15765 2 syms_6;
     AGroup 15769 2 syms_7; AGroup 15771 2 syms_8; AGroup 15783 2 syms_11; AGroup 16221 2 syms_9;
     AGroup 16223 2 syms_10; SGroup 9180 2 syms_12; SGroup 7467 3 syms_13; SGroup 9954 4 syms_14;
     AGroup 16225 5 syms_15; SGroup 9076 14 syms_17]);
   (241546, 20, [AGroup 5 1 [sym_ppDirective]; AGroup 16715 1 [anon_sym_LBRACK];
     AGroup 16717 1 [anon_sym_LPAREN]; AGroup 16721 1 [anon_sym_POUND];
     AGroup 16735 1 [sym_kSpecialize]; AGroup 16739 1 [sym_kIf]; AGroup 16741 1 [sym_kInherited];
     AGroup 18201 1 [sym_kString]; AGroup 3 2 syms_5; AGroup 16719 2 syms_6;
     AGroup 16723 2 syms_7; AGroup 16725 2 syms_8; AGroup 16727 2 syms_9; AGroup 16729 2 syms_10;
     AGroup 16737 2 syms_11; SGroup 7901 2 syms_12; SGroup 7014 3 syms_13; SGroup 8439 4 syms_14;
     AGroup 16731 5 syms_15; SGroup 7757 14 syms_17]);
   (241637, 10, [AGroup 11641 1 [sym_kDispId]; AGroup 11643 1 [sym_kPublic]; AGroup 11645 1 [sym_kMessage];
     AGroup 11647 1 [sym_kDeprecated]; AGroup 11649 1 [sym_kExport]; AGroup 11651 1 [sym_kAlias];
     SGroup 4477 1 [aux_sym__procAttributeNoExt_repeat2]; SGroup 13235 1 [sym_procAttribute];
     AGroup 3 3 syms_1; AGroup 1016 39 syms_33]);
   (241708, 20, [AGroup 5 1 [sym_ppDirective]; AGroup 16247 1 [anon_sym_LBRACK];
     AGroup 16249 1 [anon_sym_LPAREN]; AGroup 16253 1 [anon_sym_POUND];
     AGroup 16267 1 [sym_kSpecialize]; AGroup 16271 1 [sym_kIf]; AGroup 16273 1 [sym_kInherited];
     AGroup 16745 1 [sym_kString]; AGroup 3 2 syms_5; AGroup 16251 2 syms_6;
     AGroup 16255 2 syms_7; AGroup 16257 2 syms_8; AGroup 16259 2 syms_9; AGroup 16261 2 syms_10;
     AGroup 16269 2 syms_11; SGroup 8258 2 syms_12; SGroup 7207 3 syms_13; SGroup 9958 4 syms_14;
     AGroup 16263 5 syms_15; SGroup 8006 14 syms_17]);
   (241799, 20, [AGroup 5 1 [sym_ppDirective]; AGroup 9754 1 [anon_sym_LBRACK];
     AGroup 9756 1 [anon_sym_LPAREN]; AGroup 9760 1 [anon_sym_POUND];
     AGroup 9776 1 [sym_kSpecialize]; AGroup 9794 1 [sym_kInherited];
     AGroup 9800 1 [sym_kString]; AGroup 15469 1 [sym_kIf]; AGroup 3 2 syms_5;
     AGroup 9758 2 syms_6; AGroup 9762 2 syms_7; AGroup 9764 2 syms_8; AGroup 9766 2 syms_9;
     AGroup 9768 2 syms_10; AGroup 9788 2 syms_11; SGroup 7474 2 syms_12; SGroup 6591 3 syms_13;
     SGroup 7331 4 syms_14; AGroup 9770 5 syms_15; SGroup 7326 14 syms_17]);
   (241890, 20, [AGroup 5 1 [sym_ppDirective]; AGroup 16247 1 [anon_sym_LBRACK];
     AGroup 16249 1 [anon_sym_LPAREN]; AGroup 16253 1 [anon_sym_POUND];
     AGroup 16267 1 [sym_kSpecialize]; AGroup 16271 1 [sym_kIf]; AGroup 16273 1 [sym_kInherited];
     AGroup 16745 1 [sym_kString]; AGroup 3 2 syms_5; AGroup 16251 2 syms_6;
     AGroup 16255 2 syms_7; AGroup 16257 2 syms_8; AGroup 16259 2 syms_9; AGroup 16261 2 syms_10;
     AGroup 16269 2 syms_11; SGroup 8258 2 syms_12; SGroup 7207 3 syms_13; SGroup 9963 4 syms_14;
     AGroup 16263 5 syms_15; SGroup 8006 14 syms_17]);
   (241981, 20, [AGroup 5 1 [sym_ppDirective]; AGroup 9754 1 [anon_sym_LBRACK];
     AGroup 9756 1 [anon_sym_LPAREN]; AGroup 9760 1 [anon_sym_POUND];
     AGroup 9776 1 [sym_kSpecialize]; AGroup 9794 1 [sym_kInherited];
     AGroup 9800 1 [sym_kString]; AGroup 15469 1 [sym_kIf]; AGroup 3 2 syms_5;
     AGroup 9758 2 syms_6; AGroup 9762 2 syms_7; AGroup 9764 2 syms_8; AGroup 9766 2 syms_9;
     AGroup 9768 2 syms_10; AGroup 9788 2 syms_11; SGroup 7474 2 syms_12; SGroup 6591 3 syms_13;
     SGroup 7332 4 syms_14; AGroup 9770 5 syms_15; SGroup 7326 14 syms_17]);
   (242072, 20, [AGroup 5 1 [sym_ppDirective]; AGroup 16247 1 [anon_sym_LBRACK];
     AGroup 16249 1 [anon_sym_LPAREN]; AGroup 16253 1 [anon_sym_POUND];
     AGroup 16267 1 [sym_kSpecialize]; AGroup 16271 1 [sym_kIf]; AGroup 16273 1 [sym_kInherited];
     AGroup 16745 1 [sym_kString]; AGroup 3 2 syms_5; AGroup 16251 2 syms_6;
     AGroup 16255 2 syms_7; AGroup 16257 2 syms_8; AGroup 16259 2 syms_9; AGroup 16261 2 syms_10;
     AGroup 16269 2 syms_11; SGroup 8258 2 syms_12; SGroup 7207 3 syms_13; SGroup 9970 4 syms_14;
     AGroup 16263 5 syms_15; SGroup 8006 14 syms_17]);
   (242163, 20, [AGroup 5 1 [sym_ppDirective]; AGroup 9754 1 [anon_sym_LBRACK];
     AGroup 9756 1 [anon_sym_LPAREN]; AGroup 9760 1 [anon_sym_POUND];
     AGroup 9776 1 [sym_kSpecialize]; AGroup 9794 1 [sym_kInherited];
     AGroup 9800 1 [sym_kString]; AGroup 15469 1 [sym_kIf]; AGroup 3 2 syms_5;
     AGroup 9758 2 syms_6; AGroup 9762 2 syms_7; AGroup 9764 2 syms_8; AGroup 9766 2 syms_9;
     AGroup 9768 2 syms_10; AGroup 9788 2 syms_11; SGroup 7474 2 syms_12; SGroup 6591 3 syms_13;
     SGroup 7333 4 syms_14; AGroup 9770 5 syms_15; SGroup 7326 14 syms_17]);
   (242254, 20, [AGroup 5 1 [sym_ppDirective]; AGroup 16247 1 [anon_sym_LBRACK];
     AGroup 16249 1 [anon_sym_LPAREN]; AGroup 16253 1 [anon_sym_POUND];
     AGroup 16267 1 [sym_kSpecialize]; AGroup 16271 1 [sym_kIf]; AGroup 16273 1 [sym_kInherited];
     AGroup 16745 1 [sym_kString]; AGroup 3 2 syms_5; AGroup 16251 2 syms_6;
     AGroup 16255 2 syms_7; AGroup 16257 2 syms_8; AGroup 16259 2 syms_9; AGroup 16261 2 syms_10;
     AGroup 16269 2 syms_11; SGroup 8258 2 syms_12; SGroup 7207 3 syms_13; SGroup 9974 4 syms_14;
     AGroup 16263 5 syms_15; SGroup 8006 14 syms_17]);
   (242345, 21, [AGroup 5 1 [sym_ppDirective]; AGroup 9754 1 [anon_sym_LBRACK];
     AGroup 9756 1 [anon_sym_LPAREN]; AGroup 9760 1 [anon_sym_POUND]; AGroup 9768 1 [sym_kAt];
     AGroup 9776 1 [sym_kSpecialize]; AGroup 9794 1 [sym_kInherited];
     AGroup 9800 1 [sym_kString]; AGroup 15469 1 [sym_kIf]; AGroup 18584 1 [sym_kNot];
     AGroup 3 2 syms_5; AGroup 9758 2 syms_6; AGroup 9762 2 syms_7; AGroup 9764 2 syms_8;
     AGroup 9766 2 syms_9; AGroup 9788 2 syms_11; SGroup 7474 2 syms_12; SGroup 6591 3 syms_13;
     SGroup 7333 4 syms_14; AGroup 9770 5 syms_15; SGroup 7326 14 syms_17]);
   (242438, 20, [AGroup 5 1 [sym_ppDirective]; AGroup 16247 1 [anon_sym_LBRACK];
     AGroup 16249 1 [anon_sym_LPAREN]; AGroup 16253 1 [anon_sym_POUND];
     AGroup 16267 1 [sym_kSpecialize]; AGroup 16271 1 [sym_kIf]; AGroup 16273 1 [sym_kInherited];
     AGroup 16745 1 [sym_kString]; AGroup 3 2 syms_5; AGroup 16251 2 syms_6;
     AGroup 16255 2 syms_7; AGroup 16257 2 syms_8; AGroup 16259 2 syms_9; AGroup 16261 2 syms_10;
     AGroup 16269 2 syms_11; SGroup 8258 2 syms_12; SGroup 7207 3 syms_13; SGroup 9977 4 syms_14;
     AGroup 16263 5 syms_15; SGroup 8006 14 syms_17]);
   (242529, 20, [AGroup 5 1 [sym_ppDirective]; AGroup 9754 1 [anon_sym_LBRACK];
     AGroup 9756 1 [anon_sym_LPAREN]; AGroup 9760 1 [anon_sym_POUND];
     AGroup 9776 1 [sym_kSpecialize]; AGroup 9794 1 [sym_kInherited];
     AGroup 9800 1 [sym_kString]; AGroup 15469 1 [sym_kIf]; AGroup 3 2 syms_5;
     AGroup 9758 2 syms_6; AGroup 9762 2 syms_7; AGroup 9764 2 syms_8; AGroup 9766 2 syms_9;
     AGroup 9768 2 syms_10; AGroup 9788 2 syms_11; SGroup 7474 2 syms_12; SGroup 6591 3 syms_13;
     SGroup 7350 4 syms_14; AGroup 9770 5 syms_15; SGroup 7326 14 syms_17]);
   (242620, 20, [AGroup 5 1 [sym_ppDirective]; AGroup 16247 1 [anon_sym_LBRACK];
     AGroup 16249 1 [anon_sym_LPAREN]; AGroup 16253 1 [anon_sym_POUND];
     AGroup 16267 1 [sym_kSpecialize]; AGroup 16271 1 [sym_kIf]; AGroup 16273 1 [sym_kInherited];
     AGroup 16745 1 [sym_kString]; AGroup 3 2 syms_5; AGroup 16251 2 syms_6;
     AGroup 16255 2 syms_7; AGroup 16257 2 syms_8; AGroup 16259 2 syms_9; AGroup 16261 2 syms_10;
     AGroup 16269 2 syms_11; SGroup 8258 2 syms_12; SGroup 7207 3 syms_13; SGroup 9982 4 syms_14;
     AGroup 16263 5 syms_15; SGroup 8006 14 syms_17]);
   (242711, 20, [AGroup 5 1 [sym_ppDirective]; AGroup 16247 1 [anon_sym_LBRACK];
     AGroup 16249 1 [anon_sym_LPAREN]; AGroup 16253 1 [anon_sym_POUND];
     AGroup 16267 1 [sym_kSpecialize]; AGroup 16271 1 [sym_kIf]; AGroup 16273 1 [sym_kInherited];
     AGroup 16745 1 [sym_kString]; AGroup 3 2 syms_5; AGroup 16251 2 syms_6;
     AGroup 16255 2 syms_7; AGroup 16257 2 syms_8; AGroup 16259 2 syms_9; AGroup 16261 2 syms_10;
     AGroup 16269 2 syms_11; SGroup 8258 2 syms_12; SGroup 7207 3 syms_13; SGroup 9989 4 syms_14;
     AGroup 16263 5 syms_15; SGroup 8006 14 syms_17]);
   (242802, 20, [AGroup 5 1 [sym_ppDirective]; AGroup 9754 1 [anon_sym_LBRACK];
     AGroup 9756 1 [anon_sym_LPAREN]; AGroup 9760 1 [anon_sym_POUND];
     AGroup 9776 1 [sym_kSpecialize]; AGroup 9794 1 [sym_kInherited];
     AGroup 9800 1 [sym_kString]; AGroup 15755 1 [sym_kIf]; AGroup 3 2 syms_5;
     AGroup 9758 2 syms_6; AGroup 9762 2 syms_7; AGroup 9764 2 syms_8; AGroup 9788 2 syms_11;
     AGroup 15747 2 syms_9; AGroup 15749 2 syms_10; SGroup 7474 2 syms_12; SGroup 6591 3 syms_13;
     SGroup 10308 4 syms_14; AGroup 18586 5 syms_15; SGroup 7296 14 syms_17]);
   (242893, 20, [AGroup 5 1 [sym_ppDirective]; AGroup 16247 1 [anon_sym_LBRACK];
     AGroup 16249 1 [anon_sym_LPAREN]; AGroup 16253 1 [anon_sym_POUND];
     AGroup 16267 1 [sym_kSpecialize]; AGroup 16271 1 [sym_kIf]; AGroup 16273 1 [sym_kInherited];
     AGroup 16745 1 [sym_kString]; AGroup 3 2 syms_5; AGroup 16251 2 syms_6;
     AGroup 16255 2 syms_7; AGroup 16257 2 syms_8; AGroup 16259 2 syms_9; AGroup 16261 2 syms_10;
     AGroup 16269 2 syms_11; SGroup 8258 2 syms_12; SGroup 7207 3 syms_13; SGroup 9993 4 syms_14;
     AGroup 16263 5 syms_15; SGroup 8006 14 syms_17]);
   (242984, 20, [AGroup 5 1 [sym_ppDirective]; AGroup 16247 1 [anon_sym_LBRACK];
     AGroup 16249 1 [anon_sym_LPAREN]; AGroup 16253 1 [anon_sym_POUND];
     AGroup 16267 1 [sym_kSpecialize]; AGroup 16271 1 [sym_kIf]; AGroup 16273 1 [sym_kInherited];
     AGroup 16745 1 [sym_kString]; AGroup 3 2 syms_5; AGroup 16251 2 syms_6;
     AGroup 16255 2 syms_7; AGroup 16257 2 syms_8; AGroup 16259 2 syms_9; AGroup 16261 2 syms_10;
     AGroup 16269 2 syms_11; SGroup 8258 2 syms_12; SGroup 7207 3 syms_13;
     SGroup 10000 4 syms_14; AGroup 16263 5 syms_15; SGroup 8006 14 syms_17]);
   (243075, 20, [AGroup 5 1 [sym_ppDirective]; AGroup 16247 1 [anon_sym_LBRACK];
     AGroup 16249 1 [anon_sym_LPAREN]; AGroup 16253 1 [anon_sym_POUND];
     AGroup 16267 1 [sym_kSpecialize]; AGroup 16271 1 [sym_kIf]; AGroup 16273 1 [sym_kInherited];
     AGroup 16745 1 [sym_kString]; AGroup 3 2 syms_5; AGroup 16251 2 syms_6;
     AGroup 16255 2 syms_7; AGroup 16257 2 syms_8; AGroup 16259 2 syms_9; AGroup 16261 2 syms_10;
     AGroup 16269 2 syms_11; SGroup 8258 2 syms_12; SGroup 7207 3 syms_13;
     SGroup 10007 4 syms_14; AGroup 16263 5 syms_15; SGroup 8006 14 syms_17]);
   (243166, 20, [AGroup 5 1 [sym_ppDirective]; AGroup 16247 1 [anon_sym_LBRACK];
     AGroup 16249 1 [anon_sym_LPAREN]; AGroup 16253 1 [anon_sym_POUND];
     AGroup 16267 1 [sym_kSpecialize]; AGroup 16271 1 [sym_kIf]; AGroup 16273 1 [sym_kInherited];
     AGroup 16745 1 [sym_kString]; AGroup 3 2 syms_5; AGroup 16251 2 syms_6;
     AGroup 16255 2 syms_7; AGroup 16257 2 syms_8; AGroup 16259 2 syms_9; AGroup 16261 2 syms_10;
     AGroup 16269 2 syms_11; SGroup 8258 2 syms_12; SGroup 7207 3 syms_13;
     SGroup 10009 4 syms_14; AGroup 16263 5 syms_15; SGroup 8006 14 syms_17]);
   (243257, 20, [AGroup 5 1 [sym_ppDirective]; AGroup 9754 1 [anon_sym_LBRACK];
     AGroup 9756 1 [anon_sym_LPAREN]; AGroup 9760 1 [anon_sym_POUND];
     AGroup 9776 1 [sym_kSpecialize]; AGroup 9794 1 [sym_kInherited];
     AGroup 9800 1 [sym_kString]; AGroup 15469 1 [sym_kIf]; AGroup 3 2 syms_5;
     AGroup 9758 2 syms_6; AGroup 9762 2 syms_7; AGroup 9764 2 syms_8; AGroup 9766 2 syms_9;
     AGroup 9768 2 syms_10; AGroup 9788 2 syms_11; SGroup 7474 2 syms_12; SGroup 6591 3 syms_13;
     SGroup 7225 4 syms_14; AGroup 9770 5 syms_15; SGroup 7326 14 syms_17]);
   (243348, 20, [AGroup 5 1 [sym_ppDirective]; AGroup 16247 1 [anon_sym_LBRACK];
     AGroup 16249 1 [anon_sym_LPAREN]; AGroup 16253 1 [anon_sym_POUND];
     AGroup 16267 1 [sym_kSpecialize]; AGroup 16271 1 [sym_kIf]; AGroup 16273 1 [sym_kInherited];
     AGroup 16745 1 [sym_kString]; AGroup 3 2 syms_5; AGroup 16251 2 syms_6;
     AGroup 16255 2 syms_7; AGroup 16257 2 syms_8; AGroup 16259 2 syms_9; AGroup 16261 2 syms_10;
     AGroup 16269 2 syms_11; SGroup 8258 2 syms_12; SGroup 7207 3 syms_13;
     SGroup 10014 4 syms_14; AGroup 16263 5 syms_15; SGroup 8006 14 syms_17]);
   (243439, 20, [AGroup 5 1 [sym_ppDirective]; AGroup 16247 1 [anon_sym_LBRACK];
     AGroup 16249 1 [anon_sym_LPAREN]; AGroup 16253 1 [anon_sym_POUND];
     AGroup 16267 1 [sym_kSpecialize]; AGroup 16271 1 [sym_kIf]; AGroup 16273 1 [sym_kInherited];
     AGroup 16745 1 [sym_kString]; AGroup 3 2 syms_5; AGroup 16251 2 syms_6;
     AGroup 16255 2 syms_7; AGroup 16257 2 syms_8; AGroup 16259 2 syms_9; AGroup 16261 2 syms_10;
     AGroup 16269 2 syms_11; SGroup 8258 2 syms_12; SGroup 7207 3 syms_13;
     SGroup 10017 4 syms_14; AGroup 16263 5 syms_15; SGroup 8006 14 syms_17]);
   (243530, 20, [AGroup 5 1 [sym_ppDirective]; AGroup 16247 1 [anon_sym_LBRACK];
     AGroup 16249 1 [anon_sym_LPAREN]; AGroup 16253 1 [anon_sym_POUND];
     AGroup 16267 1 [sym_kSpecialize]; AGroup 16271 1 [sym_kIf]; AGroup 16273 1 [sym_kInherited];
     AGroup 16745 1 [sym_kString]; AGroup 3 2 syms_5; AGroup 16251 2 syms_6;
     AGroup 16255 2 syms_7; AGroup 16257 2 syms_8; AGroup 16259 2 syms_9; AGroup 16261 2 syms_10;
     AGroup 16269 2 syms_11; SGroup 8258 2 syms_12; SGroup 7207 3 syms_13;
     SGroup 10020 4 syms_14; AGroup 16263 5 syms_15; SGroup 8006 14 syms_17]);
   (243621, 20, [AGroup 5 1 [sym_ppDirective]; AGroup 16247 1 [anon_sym_LBRACK];
     AGroup 16249 1 [anon_sym_LPAREN]; AGroup 16253 1 [anon_sym_POUND];
     AGroup 16267 1 [sym_kSpecialize]; AGroup 16271 1 [sym_kIf]; AGroup 16273 1 [sym_kInherited];
     AGroup 16745 1 [sym_kString]; AGroup 3 2 syms_5; AGroup 16251 2 syms_6;
     AGroup 16255 2 syms_7; AGroup 16257 2 syms_8; AGroup 16259 2 syms_9; AGroup 16261 2 syms_10;
     AGroup 16269 2 syms_11; SGroup 8258 2 syms_12; SGroup 7207 3 syms_13;
     SGroup 10022 4 syms_14; AGroup 16263 5 syms_15; SGroup 8006 14 syms_17]);
   (243712, 20, [AGroup 5 1 [sym_ppDirective]; AGroup 16247 1 [anon_sym_LBRACK];
     AGroup 16249 1 [anon_sym_LPAREN]; AGroup 16253 1 [anon_sym_POUND];
     AGroup 16267 1 [sym_kSpecialize]; AGroup 16271 1 [sym_kIf]; AGroup 16273 1 [sym_kInherited];
     AGroup 16745 1 [sym_kString]; AGroup 3 2 syms_5; AGroup 16251 2 syms_6;
     AGroup 16255 2 syms_7; AGroup 16257 2 syms_8; AGroup 16259 2 syms_9; AGroup 16261 2 syms_10;
     AGroup 16269 2 syms_11; SGroup 8258 2 syms_12; SGroup 7207 3 syms_13;
     SGroup 10029 4 syms_14; AGroup 16263 5 syms_15; SGroup 8006 14 syms_17]);
   (243803, 20, [AGroup 5 1 [sym_ppDirective]; AGroup 16247 1 [anon_sym_LBRACK];
     AGroup 16249 1 [anon_sym_LPAREN]; AGroup 16253 1 [anon_sym_POUND];
     AGroup 16267 1 [sym_kSpecialize]; AGroup 16271 1 [sym_kIf]; AGroup 16273 1 [sym_kInherited];
     AGroup 16745 1 [sym_kString]; AGroup 3 2 syms_5; AGroup 16251 2 syms_6;
     AGroup 16255 2 syms_7; AGroup 16257 2 syms_8; AGroup 16259 2 syms_9; AGroup 16261 2 syms_10;
     AGroup 16269 2 syms_11; SGroup 8258 2 syms_12; SGroup 7207 3 syms_13;
     SGroup 10034 4 syms_14; AGroup 16263 5 syms_15; SGroup 8006 14 syms_17]);
   (243894, 20, [AGroup 5 1 [sym_ppDirective]; AGroup 16247 1 [anon_sym_LBRACK];
     AGroup 16249 1 [anon_sym_LPAREN]; AGroup 16253 1 [anon_sym_POUND];
     AGroup 16267 1 [sym_kSpecialize]; AGroup 16271 1 [sym_kIf]; AGroup 16273 1 [sym_kInherited];
     AGroup 16745 1 [sym_kString]; AGroup 3 2 syms_5; AGroup 16251 2 syms_6;
     AGroup 16255 2 syms_7; AGroup 16257 2 syms_8; AGroup 16259 2 syms_9; AGroup 16261 2 syms_10;
     AGroup 16269 2 syms_11; SGroup 8258 2 syms_12; SGroup 7207 3 syms_13;
     SGroup 10040 4 syms_14; AGroup 16263 5 syms_15; SGroup 8006 14 syms_17]);
   (243985, 20, [AGroup 5 1 [sym_ppDirective]; AGroup 16247 1 [anon_sym_LBRACK];
     AGroup 16249 1 [anon_sym_LPAREN]; AGroup 16253 1 [anon_sym_POUND];
     AGroup 16267 1 [sym_kSpecialize]; AGroup 16271 1 [sym_kIf]; AGroup 16273 1 [sym_kInherited];
     AGroup 16745 1 [sym_kString]; AGroup 3 2 syms_5; AGroup 16251 2 syms_6;
     AGroup 16255 2 syms_7; AGroup 16257 2 syms_8; AGroup 16259 2 syms_9; AGroup 16261 2 syms_10;
     AGroup 16269 2 syms_11; SGroup 8258 2 syms_12; SGroup 7207 3 syms_13;
     SGroup 10042 4 syms_14; AGroup 16263 5 syms_15; SGroup 8006 14 syms_17]);
   (244076, 20, [AGroup 5 1 [sym_ppDirective]; AGroup 16247 1 [anon_sym_LBRACK];
     AGroup 16249 1 [anon_sym_LPAREN]; AGroup 16253 1 [anon_sym_POUND];
     AGroup 16267 1 [sym_kSpecialize]; AGroup 16271 1 [sym_kIf]; AGroup 16273 1 [sym_kInherited];
     AGroup 16745 1 [sym_kString]; AGroup 3 2 syms_5; AGroup 16251 2 syms_6;
     AGroup 16255 2 syms_7; AGroup 16257 2 syms_8; AGroup 16259 2 syms_9; AGroup 16261 2 syms_10;
     AGroup 16269 2 syms_11; SGroup 8258 2 syms_12; SGroup 7207 3 syms_13;
     SGroup 10044 4 syms_14; AGroup 16263 5 syms_15; SGroup 8006 14 syms_17]);
   (244167, 20, [AGroup 5 1 [sym_ppDirective]; AGroup 16247 1 [anon_sym_LBRACK];
     AGroup 16249 1 [anon_sym_LPAREN]; AGroup 16253 1 [anon_sym_POUND];
     AGroup 16267 1 [sym_kSpecialize]; AGroup 16271 1 [sym_kIf]; AGroup 16273 1 [sym_kInherited];
     AGroup 16745 1 [sym_kString]; AGroup 3 2 syms_5; AGroup 16251 2 syms_6;
     AGroup 16255 2 syms_7; AGroup 16257 2 syms_8; AGroup 16259 2 syms_9; AGroup 16261 2 syms_10;
     AGroup 16269 2 syms_11; SGroup 8258 2 syms_12; SGroup 7207 3 syms_13;
     SGroup 10047 4 syms_14; AGroup 16263 5 syms_15; SGroup 8006 14 syms_17]);
   (244258, 4, [AGroup 18588 1 [sym_identifier]; SGroup 5431 1 [aux_sym_declVar_repeat1]; AGroup 3 3 syms_1;
     AGroup 14937 45 syms_162]);
   (244317, 4, [AGroup 18590 1 [sym_identifier]; SGroup 5140 1 [aux_sym_declVar_repeat1]; AGroup 3 3 syms_1;
     AGroup 18592 45 syms_162]);
   (244376, 20, [AGroup 5 1 [sym_ppDirective]; AGroup 15987 1 [anon_sym_LBRACK];
     AGroup 15989 1 [anon_sym_LPAREN]; AGroup 15993 1 [anon_sym_POUND];
     AGroup 16007 1 [sym_kSpecialize]; AGroup 16011 1 [sym_kIf]; AGroup 16013 1 [sym_kInherited];
     AGroup 18254 1 [sym_kString]; AGroup 3 2 syms_5; AGroup 15991 2 syms_6;
     AGroup 15995 2 syms_7; AGroup 15997 2 syms_8; AGroup 15999 2 syms_9; AGroup 16001 2 syms_10;
     AGroup 16009 2 syms_11; SGroup 9525 2 syms_12; SGroup 7769 3 syms_13;
     SGroup 10077 4 syms_14; AGroup 16003 5 syms_15; SGroup 9072 14 syms_17]);
   (244467, 20, [AGroup 5 1 [sym_ppDirective]; AGroup 16247 1 [anon_sym_LBRACK];
     AGroup 16249 1 [anon_sym_LPAREN]; AGroup 16253 1 [anon_sym_POUND];
     AGroup 16267 1 [sym_kSpecialize]; AGroup 16271 1 [sym_kIf]; AGroup 16273 1 [sym_kInherited];
     AGroup 16745 1 [sym_kString]; AGroup 3 2 syms_5; AGroup 16251 2 syms_6;
     AGroup 16255 2 syms_7; AGroup 16257 2 syms_8; AGroup 16259 2 syms_9; AGroup 16261 2 syms_10;
     AGroup 16269 2 syms_11; SGroup 8258 2 syms_12; SGroup 7207 3 syms_13;
     SGroup 10078 4 syms_14; AGroup 16263 5 syms_15; SGroup 8006 14 syms_17]);
   (244558, 4, [AGroup 18594 1 [sym_identifier]; SGroup 5140 1 [aux_sym_declVar_repeat1]; AGroup 3 3 syms_1;
     AGroup 18596 45 syms_162]);
   (244617, 20, [AGroup 5 1 [sym_ppDirective]; AGroup 15831 1 [anon_sym_LBRACK];
     AGroup 15833 1 [anon_sym_LPAREN]; AGroup 15837 1 [anon_sym_POUND];
     AGroup 15851 1 [sym_kSpecialize]; AGroup 15855 1 [sym_kIf]; AGroup 15857 1 [sym_kInherited];
     AGroup 17312 1 [sym_kString]; AGroup 3 2 syms_5; AGroup 15835 2 syms_6;
     AGroup 15839 2 syms_7; AGroup 15841 2 syms_8; AGroup 15843 2 syms_9; AGroup 15845 2 syms_10;
     AGroup 15853 2 syms_11; SGroup 9267 2 syms_12; SGroup 7556 3 syms_13;
     SGroup 10084 4 syms_14; AGroup 15847 5 syms_15; SGroup 8649 14 syms_17]);
   (244708, 20, [AGroup 5 1 [sym_ppDirective]; AGroup 15647 1 [anon_sym_LBRACK];
     AGroup 15653 1 [anon_sym_POUND]; AGroup 15667 1 [sym_kSpecialize];
     AGroup 15673 1 [sym_kInherited]; AGroup 15675 1 [sym_kString];
     AGroup 15745 1 [anon_sym_LPAREN]; AGroup 15755 1 [sym_kIf]; AGroup 3 2 syms_5;
     AGroup 15651 2 syms_6; AGroup 15655 2 syms_7; AGroup 15657 2 syms_8; AGroup 15669 2 syms_11;
     AGroup 15747 2 syms_9; AGroup 15749 2 syms_10; SGroup 8129 2 syms_12; SGroup 7100 3 syms_13;
     SGroup 10313 4 syms_14; AGroup 18598 5 syms_15; SGroup 8586 14 syms_17]);
   (244799, 20, [AGroup 5 1 [sym_ppDirective]; AGroup 16307 1 [anon_sym_LBRACK];
     AGroup 16309 1 [anon_sym_LPAREN]; AGroup 16313 1 [anon_sym_POUND];
     AGroup 16327 1 [sym_kSpecialize]; AGroup 16331 1 [sym_kIf]; AGroup 16333 1 [sym_kInherited];
     AGroup 18278 1 [sym_kString]; AGroup 3 2 syms_5; AGroup 16311 2 syms_6;
     AGroup 16315 2 syms_7; AGroup 16317 2 syms_8; AGroup 16319 2 syms_9; AGroup 16321 2 syms_10;
     AGroup 16329 2 syms_11; SGroup 8420 2 syms_12; SGroup 7219 3 syms_13; SGroup 9362 4 syms_14;
     AGroup 16323 5 syms_15; SGroup 8095 14 syms_17]);
   (244890, 4, [AGroup 18600 1 [sym_identifier]; SGroup 5439 1 [aux_sym_declVar_repeat1]; AGroup 3 3 syms_1;
     AGroup 18602 45 syms_162]);
   (244949, 4, [AGroup 18604 1 [sym_identifier]; SGroup 5140 1 [aux_sym_declVar_repeat1]; AGroup 3 3 syms_1;
     AGroup 18606 45 syms_162]);
   (245008, 20, [AGroup 5 1 [sym_ppDirective]; AGroup 15987 1 [anon_sym_LBRACK];
     AGroup 15989 1 [anon_sym_LPAREN]; AGroup 15993 1 [anon_sym_POUND];
     AGroup 16007 1 [sym_kSpecialize]; AGroup 16011 1 [sym_kIf]; AGroup 16013 1 [sym_kInherited];
     AGroup 18254 1 [sym_kString]; AGroup 3 2 syms_5; AGroup 15991 2 syms_6;
     AGroup 15995 2 syms_7; AGroup 15997 2 syms_8; AGroup 15999 2 syms_9; AGroup 16001 2 syms_10;
     AGroup 16009 2 syms_11; SGroup 9525 2 syms_12; SGroup 7769 3 syms_13;
     SGroup 10099 4 syms_14; AGroup 16003 5 syms_15; SGroup 9072 14 syms_17]);
   (245099, 20, [AGroup 5 1 [sym_ppDirective]; AGroup 16247 1 [anon_sym_LBRACK];
     AGroup 16249 1 [anon_sym_LPAREN]; AGroup 16253 1 [anon_sym_POUND];
     AGroup 16267 1 [sym_kSpecialize]; AGroup 16271 1 [sym_kIf]; AGroup 16273 1 [sym_kInherited];
     AGroup 16745 1 [sym_kString]; AGroup 3 2 syms_5; AGroup 16251 2 syms_6;
     AGroup 16255 2 syms_7; AGroup 16257 2 syms_8; AGroup 16259 2 syms_9; AGroup 16261 2 syms_10;
     AGroup 16269 2 syms_11; SGroup 8258 2 syms_12; SGroup 7207 3 syms_13;
     SGroup 10100 4 syms_14; AGroup 16263 5 syms_15; SGroup 8006 14 syms_17]);
   (245190, 4, [AGroup 18608 1 [sym_identifier]; SGroup 5140 1 [aux_sym_declVar_repeat1]; AGroup 3 3 syms_1;
     AGroup 18610 45 syms_162]);
   (245249, 4, [AGroup 18612 1 [sym_identifier]; SGroup 5444 1 [aux_sym_declVar_repeat1]; AGroup 3 3 syms_1;
     AGroup 18614 45 syms_162]);
   (245308, 4, [AGroup 18616 1 [sym_identifier]; SGroup 5140 1 [aux_sym_declVar_repeat1]; AGroup 3 3 syms_1;
     AGroup 18618 45 syms_162]);
   (245367, 20, [AGroup 5 1 [sym_ppDirective]; AGroup 15987 1 [anon_sym_LBRACK];
     AGroup 15989 1 [anon_sym_LPAREN]; AGroup 15993 1 [anon_sym_POUND];
     AGroup 16007 1 [sym_kSpecialize]; AGroup 16011 1 [sym_kIf]; AGroup 16013 1 [sym_kInherited];
     AGroup 18254 1 [sym_kString]; AGroup 3 2 syms_5; AGroup 15991 2 syms_6;
     AGroup 15995 2 syms_7; AGroup 15997 2 syms_8; AGroup 15999 2 syms_9; AGroup 16001 2 syms_10;
     AGroup 16009 2 syms_11; SGroup 9525 2 syms_12; SGroup 7769 3 syms_13;
     SGroup 10110 4 syms_14; AGroup 16003 5 syms_15; SGroup 9072 14 syms_17]);
   (245458, 20, [AGroup 5 1 [sym_ppDirective]; AGroup 16247 1 [anon_sym_LBRACK];
     AGroup 16249 1 [anon_sym_LPAREN]; AGroup 16253 1 [anon_sym_POUND];
     AGroup 16267 1 [sym_kSpecialize]; AGroup 16271 1 [sym_kIf]; AGroup 16273 1 [sym_kInherited];
     AGroup 16745 1 [sym_kString]; AGroup 3 2 syms_5; AGroup 16251 2 syms_6;
     AGroup 16255 2 syms_7; AGroup 16257 2 syms_8; AGroup 16259 2 syms_9; AGroup 16261 2 syms_10;
     AGroup 16269 2 syms_11; SGroup 8258 2 syms_12; SGroup 7207 3 syms_13;
     SGroup 10111 4 syms_14; AGroup 16263 5 syms_15; SGroup 8006 14 syms_17]);
   (245549, 4, [AGroup 18620 1 [sym_identifier]; SGroup 5140 1 [aux_sym_declVar_repeat1]; AGroup 3 3 syms_1;
     AGroup 18622 45 syms_162]);
   (245608, 20, [AGroup 5 1 [sym_ppDirective]; AGroup 9754 1 [anon_sym_LBRACK];
     AGroup 9756 1 [anon_sym_LPAREN]; AGroup 9760 1 [anon_sym_POUND];
     AGroup 9776 1 [sym_kSpecialize]; AGroup 9794 1 [sym_kInherited];
     AGroup 9800 1 [sym_kString]; AGroup 15469 1 [sym_kIf]; AGroup 3 2 syms_5;
     AGroup 9758 2 syms_6; AGroup 9762 2 syms_7; AGroup 9764 2 syms_8; AGroup 9766 2 syms_9;
     AGroup 9768 2 syms_10; AGroup 9788 2 syms_11; SGroup 7474 2 syms_12; SGroup 6591 3 syms_13;
     SGroup 7226 4 syms_14; AGroup 9770 5 syms_15; SGroup 7326 14 syms_17]);
   (245699, 4, [AGroup 18624 1 [sym_identifier]; SGroup 5450 1 [aux_sym_declVar_repeat1]; AGroup 3 3 syms_1;
     AGroup 18626 45 syms_162]);
   (245758, 4, [AGroup 18628 1 [sym_identifier]; SGroup 5140 1 [aux_sym_declVar_repeat1]; AGroup 3 3 syms_1;
     AGroup 18630 45 syms_162]);
   (245817, 20, [AGroup 5 1 [sym_ppDirective]; AGroup 15987 1 [anon_sym_LBRACK];
     AGroup 15989 1 [anon_sym_LPAREN]; AGroup 15993 1 [anon_sym_POUND];
     AGroup 16007 1 [sym_kSpecialize]; AGroup 16011 1 [sym_kIf]; AGroup 16013 1 [sym_kInherited];
     AGroup 18254 1 [sym_kString]; AGroup 3 2 syms_5; AGroup 15991 2 syms_6;
     AGroup 15995 2 syms_7; AGroup 15997 2 syms_8; AGroup 15999 2 syms_9; AGroup 16001 2 syms_10;
     AGroup 16009 2 syms_11; SGroup 9525 2 syms_12; SGroup 7769 3 syms_13;
     SGroup 10122 4 syms_14; AGroup 16003 5 syms_15; SGroup 9072 14 syms_17]);
   (245908, 20, [AGroup 5 1 [sym_ppDirective]; AGroup 16247 1 [anon_sym_LBRACK];
     AGroup 16249 1 [anon_sym_LPAREN]; AGroup 16253 1 [anon_sym_POUND];
     AGroup 16267 1 [sym_kSpecialize]; AGroup 16271 1 [sym_kIf]; AGroup 16273 1 [sym_kInherited];
     AGroup 16745 1 [sym_kString]; AGroup 3 2 syms_5; AGroup 16251 2 syms_6;
     AGroup 16255 2 syms_7; AGroup 16257 2 syms_8; AGroup 16259 2 syms_9; AGroup 16261 2 syms_10;
     AGroup 16269 2 syms_11; SGroup 8258 2 syms_12; SGroup 7207 3 syms_13;
     SGroup 10123 4 syms_14; AGroup 16263 5 syms_15; SGroup 8006 14 syms_17]);
   (245999, 4, [AGroup 18632 1 [sym_identifier]; SGroup 5140 1 [aux_sym_declVar_repeat1]; AGroup 3 3 syms_1;
     AGroup 18634 45 syms_162]);
   (246058, 4, [AGroup 18636 1 [sym_identifier]; SGroup 5455 1 [aux_sym_declVar_repeat1]; AGroup 3 3 syms_1;
     AGroup 18638 45 syms_162]);
   (246117, 4, [AGroup 18640 1 [sym_identifier]; SGroup 5140 1 [aux_sym_declVar_repeat1]; AGroup 3 3 syms_1;
     AGroup 18642 45 syms_162]);
   (246176, 20, [AGroup 5 1 [sym_ppDirective]; AGroup 15987 1 [anon_sym_LBRACK];
     AGroup 15989 1 [anon_sym_LPAREN]; AGroup 15993 1 [anon_sym_POUND];
     AGroup 16007 1 [sym_kSpecialize]; AGroup 16011 1 [sym_kIf]; AGroup 16013 1 [sym_kInherited];
     AGroup 18254 1 [sym_kString]; AGroup 3 2 syms_5; AGroup 15991 2 syms_6;
     AGroup 15995 2 syms_7; AGroup 15997 2 syms_8; AGroup 15999 2 syms_9; AGroup 16001 2 syms_10;
     AGroup 16009 2 syms_11; SGroup 9525 2 syms_12; SGroup 7769 3 syms_13;
     SGroup 10130 4 syms_14; AGroup 16003 5 syms_15; SGroup 9072 14 syms_17]);
   (246267, 20, [AGroup 5 1 [sym_ppDirective]; AGroup 16247 1 [anon_sym_LBRACK];
     AGroup 16249 1 [anon_sym_LPAREN]; AGroup 16253 1 [anon_sym_POUND];
     AGroup 16267 1 [sym_kSpecialize]; AGroup 16271 1 [sym_kIf]; AGroup 16273 1 [sym_kInherited];
     AGroup 16745 1 [sym_kString]; AGroup 3 2 syms_5; AGroup 16251 2 syms_6;
     AGroup 16255 2 syms_7; AGroup 16257 2 syms_8; AGroup 16259 2 syms_9; AGroup 16261 2 syms_10;
     AGroup 16269 2 syms_11; SGroup 8258 2 syms_12; SGroup 7207 3 syms_13;
     SGroup 10131 4 syms_14; AGroup 16263 5 syms_15; SGroup 8006 14 syms_17]);
   (246358, 4, [AGroup 18644 1 [sym_identifier]; SGroup 5140 1 [aux_sym_declVar_repeat1]; AGroup 3 3 syms_1;
     AGroup 18646 45 syms_162]);
   (246417, 20, [AGroup 5 1 [sym_ppDirective]; AGroup 399 1 [anon_sym_LBRACK];
     AGroup 401 1 [anon_sym_LPAREN]; AGroup 405 1 [anon_sym_POUND];
     AGroup 423 1 [sym_kSpecialize]; AGroup 445 1 [sym_kInherited]; AGroup 451 1 [sym_kString];
     AGroup 15601 1 [sym_kIf]; AGroup 3 2 syms_5; AGroup 403 2 syms_6; AGroup 407 2 syms_7;
     AGroup 409 2 syms_8; AGroup 413 2 syms_9; AGroup 415 2 syms_10; AGroup 439 2 syms_11;
     SGroup 7742 2 syms_12; SGroup 6664 3 syms_13; SGroup 7479 4 syms_14; AGroup 417 5 syms_15;
     SGroup 7478 14 syms_17]);
   (246508, 4, [AGroup 18648 1 [sym_identifier]; SGroup 5461 1 [aux_sym_declVar_repeat1]; AGroup 3 3 syms_1;
     AGroup 18650 45 syms_162]);
   (246567, 4, [AGroup 18652 1 [sym_identifier]; SGroup 5140 1 [aux_sym_declVar_repeat1]; AGroup 3 3 syms_1;
     AGroup 18654 45 syms_162])
  ].

(** States 5459 to 5558. *)
Definition small_runs_5459 : list small_run :=
  [
   (246626, 20, [AGroup 5 1 [sym_ppDirective]; AGroup 15987 1 [anon_sym_LBRACK];
     AGroup 15989 1 [anon_sym_LPAREN]; AGroup 15993 1 [anon_sym_POUND];
     AGroup 16007 1 [sym_kSpecialize]; AGroup 16011 1 [sym_kIf]; AGroup 16013 1 [sym_kInherited];
     AGroup 18254 1 [sym_kString]; AGroup 3 2 syms_5; AGroup 15991 2 syms_6;
     AGroup 15995 2 syms_7; AGroup 15997 2 syms_8; AGroup 15999 2 syms_9; AGroup 16001 2 syms_10;
     AGroup 16009 2 syms_11; SGroup 9525 2 syms_12; SGroup 7769 3 syms_13;
     SGroup 10134 4 syms_14; AGroup 16003 5 syms_15; SGroup 9072 14 syms_17]);
   (246717, 20, [AGroup 5 1 [sym_ppDirective]; AGroup 16247 1 [anon_sym_LBRACK];
     AGroup 16249 1 [anon_sym_LPAREN]; AGroup 16253 1 [anon_sym_POUND];
     AGroup 16267 1 [sym_kSpecialize]; AGroup 16271 1 [sym_kIf]; AGroup 16273 1 [sym_kInherited];
     AGroup 16745 1 [sym_kString]; AGroup 3 2 syms_5; AGroup 16251 2 syms_6;
     AGroup 16255 2 syms_7; AGroup 16257 2 syms_8; AGroup 16259 2 syms_9; AGroup 16261 2 syms_10;
     AGroup 16269 2 syms_11; SGroup 8258 2 syms_12; SGroup 7207 3 syms_13;
     SGroup 10135 4 syms_14; AGroup 16263 5 syms_15; SGroup 8006 14 syms_17]);
   (246808, 4, [AGroup 18656 1 [sym_identifier]; SGroup 5140 1 [aux_sym_declVar_repeat1]; AGroup 3 3 syms_1;
     AGroup 18658 45 syms_162]);
   (246867, 20, [AGroup 5 1 [sym_ppDirective]; AGroup 7422 1 [anon_sym_LBRACK];
     AGroup 7424 1 [anon_sym_LPAREN]; AGroup 7428 1 [anon_sym_POUND];
     AGroup 7444 1 [sym_kSpecialize]; AGroup 7462 1 [sym_kInherited];
     AGroup 7468 1 [sym_kString]; AGroup 15135 1 [sym_kIf]; AGroup 3 2 syms_5;
     AGroup 7426 2 syms_6; AGroup 7430 2 syms_7; AGroup 7432 2 syms_8; AGroup 7434 2 syms_9;
     AGroup 7436 2 syms_10; AGroup 7456 2 syms_11; SGroup 7250 2 syms_12; SGroup 6416 3 syms_13;
     SGroup 7149 4 syms_14; AGroup 7438 5 syms_15; SGroup 7153 14 syms_17]);
   (246958, 20, [AGroup 5 1 [sym_ppDirective]; AGroup 15987 1 [anon_sym_LBRACK];
     AGroup 15989 1 [anon_sym_LPAREN]; AGroup 15993 1 [anon_sym_POUND];
     AGroup 16007 1 [sym_kSpecialize]; AGroup 16011 1 [sym_kIf]; AGroup 16013 1 [sym_kInherited];
     AGroup 18254 1 [sym_kString]; AGroup 3 2 syms_5; AGroup 15991 2 syms_6;
     AGroup 15995 2 syms_7; AGroup 15997 2 syms_8; AGroup 15999 2 syms_9; AGroup 16001 2 syms_10;
     AGroup 16009 2 syms_11; SGroup 9525 2 syms_12; SGroup 7769 3 syms_13;
     SGroup 10138 4 syms_14; AGroup 16003 5 syms_15; SGroup 9072 14 syms_17]);
   (247049, 20, [AGroup 5 1 [sym_ppDirective]; AGroup 16247 1 [anon_sym_LBRACK];
     AGroup 16249 1 [anon_sym_LPAREN]; AGroup 16253 1 [anon_sym_POUND];
     AGroup 16267 1 [sym_kSpecialize]; AGroup 16271 1 [sym_kIf]; AGroup 16273 1 [sym_kInherited];
     AGroup 16745 1 [sym_kString]; AGroup 3 2 syms_5; AGroup 16251 2 syms_6;
     AGroup 16255 2 syms_7; AGroup 16257 2 syms_8; AGroup 16259 2 syms_9; AGroup 16261 2 syms_10;
     AGroup 16269 2 syms_11; SGroup 8258 2 syms_12; SGroup 7207 3 syms_13;
     SGroup 10139 4 syms_14; AGroup 16263 5 syms_15; SGroup 8006 14 syms_17]);
   (247140, 20, [AGroup 5 1 [sym_ppDirective]; AGroup 15987 1 [anon_sym_LBRACK];
     AGroup 15989 1 [anon_sym_LPAREN]; AGroup 15993 1 [anon_sym_POUND];
     AGroup 16007 1 [sym_kSpecialize]; AGroup 16011 1 [sym_kIf]; AGroup 16013 1 [sym_kInherited];
     AGroup 18254 1 [sym_kString]; AGroup 3 2 syms_5; AGroup 15991 2 syms_6;
     AGroup 15995 2 syms_7; AGroup 15997 2 syms_8; AGroup 15999 2 syms_9; AGroup 16001 2 syms_10;
     AGroup 16009 2 syms_11; SGroup 9525 2 syms_12; SGroup 7769 3 syms_13;
     SGroup 10142 4 syms_14; AGroup 16003 5 syms_15; SGroup 9072 14 syms_17]);
   (247231, 20, [AGroup 5 1 [sym_ppDirective]; AGroup 673 1 [anon_sym_LBRACK];
     AGroup 675 1 [anon_sym_LPAREN]; AGroup 679 1 [anon_sym_POUND];
     AGroup 695 1 [sym_kSpecialize]; AGroup 717 1 [sym_kInherited]; AGroup 723 1 [sym_kString];
     AGroup 15297 1 [sym_kIf]; AGroup 3 2 syms_5; AGroup 677 2 syms_6; AGroup 681 2 syms_7;
     AGroup 683 2 syms_8; AGroup 685 2 syms_9; AGroup 687 2 syms_10; AGroup 711 2 syms_11;
     SGroup 7426 2 syms_12; SGroup 6541 3 syms_13; SGroup 7317 4 syms_14; AGroup 689 5 syms_15;
     SGroup 7259 14 syms_17]);
   (247322, 20, [AGroup 5 1 [sym_ppDirective]; AGroup 15987 1 [anon_sym_LBRACK];
     AGroup 15989 1 [anon_sym_LPAREN]; AGroup 15993 1 [anon_sym_POUND];
     AGroup 16007 1 [sym_kSpecialize]; AGroup 16011 1 [sym_kIf]; AGroup 16013 1 [sym_kInherited];
     AGroup 18254 1 [sym_kString]; AGroup 3 2 syms_5; AGroup 15991 2 syms_6;
     AGroup 15995 2 syms_7; AGroup 15997 2 syms_8; AGroup 15999 2 syms_9; AGroup 16001 2 syms_10;
     AGroup 16009 2 syms_11; SGroup 9525 2 syms_12; SGroup 7769 3 syms_13;
     SGroup 10144 4 syms_14; AGroup 16003 5 syms_15; SGroup 9072 14 syms_17]);
   (247413, 20, [AGroup 5 1 [sym_ppDirective]; AGroup 15987 1 [anon_sym_LBRACK];
     AGroup 15989 1 [anon_sym_LPAREN]; AGroup 15993 1 [anon_sym_POUND];
     AGroup 16007 1 [sym_kSpecialize]; AGroup 16011 1 [sym_kIf]; AGroup 16013 1 [sym_kInherited];
     AGroup 18254 1 [sym_kString]; AGroup 3 2 syms_5; AGroup 15991 2 syms_6;
     AGroup 15995 2 syms_7; AGroup 15997 2 syms_8; AGroup 15999 2 syms_9; AGroup 16001 2 syms_10;
     AGroup 16009 2 syms_11; SGroup 9525 2 syms_12; SGroup 7769 3 syms_13;
     SGroup 10146 4 syms_14; AGroup 16003 5 syms_15; SGroup 9072 14 syms_17]);
   (247504, 20, [AGroup 5 1 [sym_ppDirective]; AGroup 15987 1 [anon_sym_LBRACK];
     AGroup 15989 1 [anon_sym_LPAREN]; AGroup 15993 1 [anon_sym_POUND];
     AGroup 16007 1 [sym_kSpecialize]; AGroup 16011 1 [sym_kIf]; AGroup 16013 1 [sym_kInherited];
     AGroup 18254 1 [sym_kString]; AGroup 3 2 syms_5; AGroup 15991 2 syms_6;
     AGroup 15995 2 syms_7; AGroup 15997 2 syms_8; AGroup 15999 2 syms_9; AGroup 16001 2 syms_10;
     AGroup 16009 2 syms_11; SGroup 9525 2 syms_12; SGroup 7769 3 syms_13;
     SGroup 10148 4 syms_14; AGroup 16003 5 syms_15; SGroup 9072 14 syms_17]);
   (247595, 20, [AGroup 5 1 [sym_ppDirective]; AGroup 7422 1 [anon_sym_LBRACK];
     AGroup 7424 1 [anon_sym_LPAREN]; AGroup 7428 1 [anon_sym_POUND];
     AGroup 7444 1 [sym_kSpecialize]; AGroup 7462 1 [sym_kInherited];
     AGroup 7468 1 [sym_kString]; AGroup 15135 1 [sym_kIf]; AGroup 3 2 syms_5;
     AGroup 7426 2 syms_6; AGroup 7430 2 syms_7; AGroup 7432 2 syms_8; AGroup 7434 2 syms_9;
     AGroup 7436 2 syms_10; AGroup 7456 2 syms_11; SGroup 7250 2 syms_12; SGroup 6416 3 syms_13;
     SGroup 7154 4 syms_14; AGroup 7438 5 syms_15; SGroup 7153 14 syms_17]);
   (247686, 20, [AGroup 5 1 [sym_ppDirective]; AGroup 15987 1 [anon_sym_LBRACK];
     AGroup 15989 1 [anon_sym_LPAREN]; AGroup 15993 1 [anon_sym_POUND];
     AGroup 16007 1 [sym_kSpecialize]; AGroup 16011 1 [sym_kIf]; AGroup 16013 1 [sym_kInherited];
     AGroup 18254 1 [sym_kString]; AGroup 3 2 syms_5; AGroup 15991 2 syms_6;
     AGroup 15995 2 syms_7; AGroup 15997 2 syms_8; AGroup 15999 2 syms_9; AGroup 16001 2 syms_10;
     AGroup 16009 2 syms_11; SGroup 9525 2 syms_12; SGroup 7769 3 syms_13;
     SGroup 10149 4 syms_14; AGroup 16003 5 syms_15; SGroup 9072 14 syms_17]);
   (247777, 20, [AGroup 5 1 [sym_ppDirective]; AGroup 7422 1 [anon_sym_LBRACK];
     AGroup 7424 1 [anon_sym_LPAREN]; AGroup 7428 1 [anon_sym_POUND];
     AGroup 7444 1 [sym_kSpecialize]; AGroup 7462 1 [sym_kInherited];
     AGroup 7468 1 [sym_kString]; AGroup 15135 1 [sym_kIf]; AGroup 3 2 syms_5;
     AGroup 7426 2 syms_6; AGroup 7430 2 syms_7; AGroup 7432 2 syms_8; AGroup 7434 2 syms_9;
     AGroup 7436 2 syms_10; AGroup 7456 2 syms_11; SGroup 7250 2 syms_12; SGroup 6416 3 syms_13;
     SGroup 7155 4 syms_14; AGroup 7438 5 syms_15; SGroup 7153 14 syms_17]);
   (247868, 20, [AGroup 5 1 [sym_ppDirective]; AGroup 15987 1 [anon_sym_LBRACK];
     AGroup 15989 1 [anon_sym_LPAREN]; AGroup 15993 1 [anon_sym_POUND];
     AGroup 16007 1 [sym_kSpecialize]; AGroup 16011 1 [sym_kIf]; AGroup 16013 1 [sym_kInherited];
     AGroup 18254 1 [sym_kString]; AGroup 3 2 syms_5; AGroup 15991 2 syms_6;
     AGroup 15995 2 syms_7; AGroup 15997 2 syms_8; AGroup 15999 2 syms_9; AGroup 16001 2 syms_10;
     AGroup 16009 2 syms_11; SGroup 9525 2 syms_12; SGroup 7769 3 syms_13;
     SGroup 10151 4 syms_14; AGroup 16003 5 syms_15; SGroup 9072 14 syms_17]);
   (247959, 20, [AGroup 5 1 [sym_ppDirective]; AGroup 7422 1 [anon_sym_LBRACK];
     AGroup 7424 1 [anon_sym_LPAREN]; AGroup 7428 1 [anon_sym_POUND];
     AGroup 7444 1 [sym_kSpecialize]; AGroup 7462 1 [sym_kInherited];
     AGroup 7468 1 [sym_kString]; AGroup 15135 1 [sym_kIf]; AGroup 3 2 syms_5;
     AGroup 7426 2 syms_6; AGroup 7430 2 syms_7; AGroup 7432 2 syms_8; AGroup 7434 2 syms_9;
     AGroup 7436 2 syms_10; AGroup 7456 2 syms_11; SGroup 7250 2 syms_12; SGroup 6416 3 syms_13;
     SGroup 7156 4 syms_14; AGroup 7438 5 syms_15; SGroup 7153 14 syms_17]);
   (248050, 20, [AGroup 5 1 [sym_ppDirective]; AGroup 15987 1 [anon_sym_LBRACK];
     AGroup 15989 1 [anon_sym_LPAREN]; AGroup 15993 1 [anon_sym_POUND];
     AGroup 16007 1 [sym_kSpecialize]; AGroup 16011 1 [sym_kIf]; AGroup 16013 1 [sym_kInherited];
     AGroup 18254 1 [sym_kString]; AGroup 3 2 syms_5; AGroup 15991 2 syms_6;
     AGroup 15995 2 syms_7; AGroup 15997 2 syms_8; AGroup 15999 2 syms_9; AGroup 16001 2 syms_10;
     AGroup 16009 2 syms_11; SGroup 9525 2 syms_12; SGroup 7769 3 syms_13;
     SGroup 10154 4 syms_14; AGroup 16003 5 syms_15; SGroup 9072 14 syms_17]);
   (248141, 21, [AGroup 5 1 [sym_ppDirective]; AGroup 7422 1 [anon_sym_LBRACK];
     AGroup 7424 1 [anon_sym_LPAREN]; AGroup 7428 1 [anon_sym_POUND]; AGroup 7436 1 [sym_kAt];
     AGroup 7444 1 [sym_kSpecialize]; AGroup 7462 1 [sym_kInherited];
     AGroup 7468 1 [sym_kString]; AGroup 15135 1 [sym_kIf]; AGroup 18660 1 [sym_kNot];
     AGroup 3 2 syms_5; AGroup 7426 2 syms_6; AGroup 7430 2 syms_7; AGroup 7432 2 syms_8;
     AGroup 7434 2 syms_9; AGroup 7456 2 syms_11; SGroup 7250 2 syms_12; SGroup 6416 3 syms_13;
     SGroup 7156 4 syms_14; AGroup 7438 5 syms_15; SGroup 7153 14 syms_17]);
   (248234, 20, [AGroup 5 1 [sym_ppDirective]; AGroup 15987 1 [anon_sym_LBRACK];
     AGroup 15989 1 [anon_sym_LPAREN]; AGroup 15993 1 [anon_sym_POUND];
     AGroup 16007 1 [sym_kSpecialize]; AGroup 16011 1 [sym_kIf]; AGroup 16013 1 [sym_kInherited];
     AGroup 18254 1 [sym_kString]; AGroup 3 2 syms_5; AGroup 15991 2 syms_6;
     AGroup 15995 2 syms_7; AGroup 15997 2 syms_8; AGroup 15999 2 syms_9; AGroup 16001 2 syms_10;
     AGroup 16009 2 syms_11; SGroup 9525 2 syms_12; SGroup 7769 3 syms_13;
     SGroup 10155 4 syms_14; AGroup 16003 5 syms_15; SGroup 9072 14 syms_17]);
   (248325, 20, [AGroup 5 1 [sym_ppDirective]; AGroup 7422 1 [anon_sym_LBRACK];
     AGroup 7424 1 [anon_sym_LPAREN]; AGroup 7428 1 [anon_sym_POUND];
     AGroup 7444 1 [sym_kSpecialize]; AGroup 7462 1 [sym_kInherited];
     AGroup 7468 1 [sym_kString]; AGroup 15135 1 [sym_kIf]; AGroup 3 2 syms_5;
     AGroup 7426 2 syms_6; AGroup 7430 2 syms_7; AGroup 7432 2 syms_8; AGroup 7434 2 syms_9;
     AGroup 7436 2 syms_10; AGroup 7456 2 syms_11; SGroup 7250 2 syms_12; SGroup 6416 3 syms_13;
     SGroup 7157 4 syms_14; AGroup 7438 5 syms_15; SGroup 7153 14 syms_17]);
   (248416, 20, [AGroup 5 1 [sym_ppDirective]; AGroup 15987 1 [anon_sym_LBRACK];
     AGroup 15989 1 [anon_sym_LPAREN]; AGroup 15993 1 [anon_sym_POUND];
     AGroup 16007 1 [sym_kSpecialize]; AGroup 16011 1 [sym_kIf]; AGroup 16013 1 [sym_kInherited];
     AGroup 18254 1 [sym_kString]; AGroup 3 2 syms_5; AGroup 15991 2 syms_6;
     AGroup 15995 2 syms_7; AGroup 15997 2 syms_8; AGroup 15999 2 syms_9; AGroup 16001 2 syms_10;
     AGroup 16009 2 syms_11; SGroup 9525 2 syms_12; SGroup 7769 3 syms_13;
     SGroup 10157 4 syms_14; AGroup 16003 5 syms_15; SGroup 9072 14 syms_17]);
   (248507, 20, [AGroup 5 1 [sym_ppDirective]; AGroup 15987 1 [anon_sym_LBRACK];
     AGroup 15989 1 [anon_sym_LPAREN]; AGroup 15993 1 [anon_sym_POUND];
     AGroup 16007 1 [sym_kSpecialize]; AGroup 16011 1 [sym_kIf]; AGroup 16013 1 [sym_kInherited];
     AGroup 18254 1 [sym_kString]; AGroup 3 2 syms_5; AGroup 15991 2 syms_6;
     AGroup 15995 2 syms_7; AGroup 15997 2 syms_8; AGroup 15999 2 syms_9; AGroup 16001 2 syms_10;
     AGroup 16009 2 syms_11; SGroup 9525 2 syms_12; SGroup 7769 3 syms_13;
     SGroup 10160 4 syms_14; AGroup 16003 5 syms_15; SGroup 9072 14 syms_17]);
   (248598, 20, [AGroup 5 1 [sym_ppDirective]; AGroup 7422 1 [anon_sym_LBRACK];
     AGroup 7424 1 [anon_sym_LPAREN]; AGroup 7428 1 [anon_sym_POUND];
     AGroup 7444 1 [sym_kSpecialize]; AGroup 7462 1 [sym_kInherited];
     AGroup 7468 1 [sym_kString]; AGroup 15755 1 [sym_kIf]; AGroup 3 2 syms_5;
     AGroup 7426 2 syms_6; AGroup 7430 2 syms_7; AGroup 7432 2 syms_8; AGroup 7456 2 syms_11;
     AGroup 15747 2 syms_9; AGroup 15749 2 syms_10; SGroup 7250 2 syms_12; SGroup 6416 3 syms_13;
     SGroup 10263 4 syms_14; AGroup 18662 5 syms_15; SGroup 7158 14 syms_17]);
   (248689, 20, [AGroup 5 1 [sym_ppDirective]; AGroup 15987 1 [anon_sym_LBRACK];
     AGroup 15989 1 [anon_sym_LPAREN]; AGroup 15993 1 [anon_sym_POUND];
     AGroup 16007 1 [sym_kSpecialize]; AGroup 16011 1 [sym_kIf]; AGroup 16013 1 [sym_kInherited];
     AGroup 18254 1 [sym_kString]; AGroup 3 2 syms_5; AGroup 15991 2 syms_6;
     AGroup 15995 2 syms_7; AGroup 15997 2 syms_8; AGroup 15999 2 syms_9; AGroup 16001 2 syms_10;
     AGroup 16009 2 syms_11; SGroup 9525 2 syms_12; SGroup 7769 3 syms_13; SGroup 9825 4 syms_14;
     AGroup 16003 5 syms_15; SGroup 9072 14 syms_17]);
   (248780, 20, [AGroup 5 1 [sym_ppDirective]; AGroup 15987 1 [anon_sym_LBRACK];
     AGroup 15989 1 [anon_sym_LPAREN]; AGroup 15993 1 [anon_sym_POUND];
     AGroup 16007 1 [sym_kSpecialize]; AGroup 16011 1 [sym_kIf]; AGroup 16013 1 [sym_kInherited];
     AGroup 18254 1 [sym_kString]; AGroup 3 2 syms_5; AGroup 15991 2 syms_6;
     AGroup 15995 2 syms_7; AGroup 15997 2 syms_8; AGroup 15999 2 syms_9; AGroup 16001 2 syms_10;
     AGroup 16009 2 syms_11; SGroup 9525 2 syms_12; SGroup 7769 3 syms_13;
     SGroup 10165 4 syms_14; AGroup 16003 5 syms_15; SGroup 9072 14 syms_17]);
   (248871, 20, [AGroup 5 1 [sym_ppDirective]; AGroup 15987 1 [anon_sym_LBRACK];
     AGroup 15989 1 [anon_sym_LPAREN]; AGroup 15993 1 [anon_sym_POUND];
     AGroup 16007 1 [sym_kSpecialize]; AGroup 16011 1 [sym_kIf]; AGroup 16013 1 [sym_kInherited];
     AGroup 18254 1 [sym_kString]; AGroup 3 2 syms_5; AGroup 15991 2 syms_6;
     AGroup 15995 2 syms_7; AGroup 15997 2 syms_8; AGroup 15999 2 syms_9; AGroup 16001 2 syms_10;
     AGroup 16009 2 syms_11; SGroup 9525 2 syms_12; SGroup 7769 3 syms_13;
     SGroup 10167 4 syms_14; AGroup 16003 5 syms_15; SGroup 9072 14 syms_17]);
   (248962, 20, [AGroup 5 1 [sym_ppDirective]; AGroup 15987 1 [anon_sym_LBRACK];
     AGroup 15989 1 [anon_sym_LPAREN]; AGroup 15993 1 [anon_sym_POUND];
     AGroup 16007 1 [sym_kSpecialize]; AGroup 16011 1 [sym_kIf]; AGroup 16013 1 [sym_kInherited];
     AGroup 18254 1 [sym_kString]; AGroup 3 2 syms_5; AGroup 15991 2 syms_6;
     AGroup 15995 2 syms_7; AGroup 15997 2 syms_8; AGroup 15999 2 syms_9; AGroup 16001 2 syms_10;
     AGroup 16009 2 syms_11; SGroup 9525 2 syms_12; SGroup 7769 3 syms_13;
     SGroup 10170 4 syms_14; AGroup 16003 5 syms_15; SGroup 9072 14 syms_17]);
   (249053, 20, [AGroup 5 1 [sym_ppDirective]; AGroup 7422 1 [anon_sym_LBRACK];
     AGroup 7424 1 [anon_sym_LPAREN]; AGroup 7428 1 [anon_sym_POUND];
     AGroup 7444 1 [sym_kSpecialize]; AGroup 7462 1 [sym_kInherited];
     AGroup 7468 1 [sym_kString]; AGroup 15135 1 [sym_kIf]; AGroup 3 2 syms_5;
     AGroup 7426 2 syms_6; AGroup 7430 2 syms_7; AGroup 7432 2 syms_8; AGroup 7434 2 syms_9;
     AGroup 7436 2 syms_10; AGroup 7456 2 syms_11; SGroup 7250 2 syms_12; SGroup 6416 3 syms_13;
     SGroup 7159 4 syms_14; AGroup 7438 5 syms_15; SGroup 7153 14 syms_17]);
   (249144, 20, [AGroup 5 1 [sym_ppDirective]; AGroup 15987 1 [anon_sym_LBRACK];
     AGroup 15989 1 [anon_sym_LPAREN]; AGroup 15993 1 [anon_sym_POUND];
     AGroup 16007 1 [sym_kSpecialize]; AGroup 16011 1 [sym_kIf]; AGroup 16013 1 [sym_kInherited];
     AGroup 18254 1 [sym_kString]; AGroup 3 2 syms_5; AGroup 15991 2 syms_6;
     AGroup 15995 2 syms_7; AGroup 15997 2 syms_8; AGroup 15999 2 syms_9; AGroup 16001 2 syms_10;
     AGroup 16009 2 syms_11; SGroup 9525 2 syms_12; SGroup 7769 3 syms_13;
     SGroup 10171 4 syms_14; AGroup 16003 5 syms_15; SGroup 9072 14 syms_17]);
   (249235, 20, [AGroup 5 1 [sym_ppDirective]; AGroup 15987 1 [anon_sym_LBRACK];
     AGroup 15989 1 [anon_sym_LPAREN]; AGroup 15993 1 [anon_sym_POUND];
     AGroup 16007 1 [sym_kSpecialize]; AGroup 16011 1 [sym_kIf]; AGroup 16013 1 [sym_kInherited];
     AGroup 18254 1 [sym_kString]; AGroup 3 2 syms_5; AGroup 15991 2 syms_6;
     AGroup 15995 2 syms_7; AGroup 15997 2 syms_8; AGroup 15999 2 syms_9; AGroup 16001 2 syms_10;
     AGroup 16009 2 syms_11; SGroup 9525 2 syms_12; SGroup 7769 3 syms_13;
     SGroup 10173 4 syms_14; AGroup 16003 5 syms_15; SGroup 9072 14 syms_17]);
   (249326, 20, [AGroup 5 1 [sym_ppDirective]; AGroup 15647 1 [anon_sym_LBRACK];
     AGroup 15653 1 [anon_sym_POUND]; AGroup 15667 1 [sym_kSpecialize];
     AGroup 15673 1 [sym_kInherited]; AGroup 15675 1 [sym_kString];
     AGroup 15745 1 [anon_sym_LPAREN]; AGroup 15755 1 [sym_kIf]; AGroup 3 2 syms_5;
     AGroup 15651 2 syms_6; AGroup 15655 2 syms_7; AGroup 15657 2 syms_8; AGroup 15669 2 syms_11;
     AGroup 15747 2 syms_9; AGroup 15749 2 syms_10; SGroup 8129 2 syms_12; SGroup 7100 3 syms_13;
     SGroup 10313 4 syms_14; AGroup 18664 5 syms_15; SGroup 9307 14 syms_17]);
   (249417, 20, [AGroup 5 1 [sym_ppDirective]; AGroup 15987 1 [anon_sym_LBRACK];
     AGroup 15989 1 [anon_sym_LPAREN]; AGroup 15993 1 [anon_sym_POUND];
     AGroup 16007 1 [sym_kSpecialize]; AGroup 16011 1 [sym_kIf]; AGroup 16013 1 [sym_kInherited];
     AGroup 18254 1 [sym_kString]; AGroup 3 2 syms_5; AGroup 15991 2 syms_6;
     AGroup 15995 2 syms_7; AGroup 15997 2 syms_8; AGroup 15999 2 syms_9; AGroup 16001 2 syms_10;
     AGroup 16009 2 syms_11; SGroup 9525 2 syms_12; SGroup 7769 3 syms_13;
     SGroup 10175 4 syms_14; AGroup 16003 5 syms_15; SGroup 9072 14 syms_17]);
   (249508, 20, [AGroup 5 1 [sym_ppDirective]; AGroup 15987 1 [anon_sym_LBRACK];
     AGroup 15989 1 [anon_sym_LPAREN]; AGroup 15993 1 [anon_sym_POUND];
     AGroup 16007 1 [sym_kSpecialize]; AGroup 16011 1 [sym_kIf]; AGroup 16013 1 [sym_kInherited];
     AGroup 18254 1 [sym_kString]; AGroup 3 2 syms_5; AGroup 15991 2 syms_6;
     AGroup 15995 2 syms_7; AGroup 15997 2 syms_8; AGroup 15999 2 syms_9; AGroup 16001 2 syms_10;
     AGroup 16009 2 syms_11; SGroup 9525 2 syms_12; SGroup 7769 3 syms_13;
     SGroup 10177 4 syms_14; AGroup 16003 5 syms_15; SGroup 9072 14 syms_17]);
   (249599, 20, [AGroup 5 1 [sym_ppDirective]; AGroup 15647 1 [anon_sym_LBRACK];
     AGroup 15653 1 [anon_sym_POUND]; AGroup 15667 1 [sym_kSpecialize];
     AGroup 15673 1 [sym_kInherited]; AGroup 15675 1 [sym_kString];
     AGroup 15745 1 [anon_sym_LPAREN]; AGroup 15755 1 [sym_kIf]; AGroup 3 2 syms_5;
     AGroup 15651 2 syms_6; AGroup 15655 2 syms_7; AGroup 15657 2 syms_8; AGroup 15669 2 syms_11;
     AGroup 15747 2 syms_9; AGroup 15749 2 syms_10; SGroup 8129 2 syms_12; SGroup 7100 3 syms_13;
     SGroup 10313 4 syms_14; AGroup 18666 5 syms_15; SGroup 9313 14 syms_17]);
   (249690, 20, [AGroup 5 1 [sym_ppDirective]; AGroup 15987 1 [anon_sym_LBRACK];
     AGroup 15989 1 [anon_sym_LPAREN]; AGroup 15993 1 [anon_sym_POUND];
     AGroup 16007 1 [sym_kSpecialize]; AGroup 16011 1 [sym_kIf]; AGroup 16013 1 [sym_kInherited];
     AGroup 18254 1 [sym_kString]; AGroup 3 2 syms_5; AGroup 15991 2 syms_6;
     AGroup 15995 2 syms_7; AGroup 15997 2 syms_8; AGroup 15999 2 syms_9; AGroup 16001 2 syms_10;
     AGroup 16009 2 syms_11; SGroup 9525 2 syms_12; SGroup 7769 3 syms_13;
     SGroup 10180 4 syms_14; AGroup 16003 5 syms_15; SGroup 9072 14 syms_17]);
   (249781, 20, [AGroup 5 1 [sym_ppDirective]; AGroup 15987 1 [anon_sym_LBRACK];
     AGroup 15989 1 [anon_sym_LPAREN]; AGroup 15993 1 [anon_sym_POUND];
     AGroup 16007 1 [sym_kSpecialize]; AGroup 16011 1 [sym_kIf]; AGroup 16013 1 [sym_kInherited];
     AGroup 18254 1 [sym_kString]; AGroup 3 2 syms_5; AGroup 15991 2 syms_6;
     AGroup 15995 2 syms_7; AGroup 15997 2 syms_8; AGroup 15999 2 syms_9; AGroup 16001 2 syms_10;
     AGroup 16009 2 syms_11; SGroup 9525 2 syms_12; SGroup 7769 3 syms_13;
     SGroup 10181 4 syms_14; AGroup 16003 5 syms_15; SGroup 9072 14 syms_17]);
   (249872, 20, [AGroup 5 1 [sym_ppDirective]; AGroup 7422 1 [anon_sym_LBRACK];
     AGroup 7424 1 [anon_sym_LPAREN]; AGroup 7428 1 [anon_sym_POUND];
     AGroup 7444 1 [sym_kSpecialize]; AGroup 7462 1 [sym_kInherited];
     AGroup 7468 1 [sym_kString]; AGroup 15135 1 [sym_kIf]; AGroup 3 2 syms_5;
     AGroup 7426 2 syms_6; AGroup 7430 2 syms_7; AGroup 7432 2 syms_8; AGroup 7434 2 syms_9;
     AGroup 7436 2 syms_10; AGroup 7456 2 syms_11; SGroup 7250 2 syms_12; SGroup 6416 3 syms_13;
     SGroup 7160 4 syms_14; AGroup 7438 5 syms_15; SGroup 7153 14 syms_17]);
   (249963, 20, [AGroup 5 1 [sym_ppDirective]; AGroup 15987 1 [anon_sym_LBRACK];
     AGroup 15989 1 [anon_sym_LPAREN]; AGroup 15993 1 [anon_sym_POUND];
     AGroup 16007 1 [sym_kSpecialize]; AGroup 16011 1 [sym_kIf]; AGroup 16013 1 [sym_kInherited];
     AGroup 18254 1 [sym_kString]; AGroup 3 2 syms_5; AGroup 15991 2 syms_6;
     AGroup 15995 2 syms_7; AGroup 15997 2 syms_8; AGroup 15999 2 syms_9; AGroup 16001 2 syms_10;
     AGroup 16009 2 syms_11; SGroup 9525 2 syms_12; SGroup 7769 3 syms_13;
     SGroup 10183 4 syms_14; AGroup 16003 5 syms_15; SGroup 9072 14 syms_17]);
   (250054, 20, [AGroup 5 1 [sym_ppDirective]; AGroup 15987 1 [anon_sym_LBRACK];
     AGroup 15989 1 [anon_sym_LPAREN]; AGroup 15993 1 [anon_sym_POUND];
     AGroup 16007 1 [sym_kSpecialize]; AGroup 16011 1 [sym_kIf]; AGroup 16013 1 [sym_kInherited];
     AGroup 18254 1 [sym_kString]; AGroup 3 2 syms_5; AGroup 15991 2 syms_6;
     AGroup 15995 2 syms_7; AGroup 15997 2 syms_8; AGroup 15999 2 syms_9; AGroup 16001 2 syms_10;
     AGroup 16009 2 syms_11; SGroup 9525 2 syms_12; SGroup 7769 3 syms_13;
     SGroup 10184 4 syms_14; AGroup 16003 5 syms_15; SGroup 9072 14 syms_17]);
   (250145, 20, [AGroup 5 1 [sym_ppDirective]; AGroup 15987 1 [anon_sym_LBRACK];
     AGroup 15989 1 [anon_sym_LPAREN]; AGroup 15993 1 [anon_sym_POUND];
     AGroup 16007 1 [sym_kSpecialize]; AGroup 16011 1 [sym_kIf]; AGroup 16013 1 [sym_kInherited];
     AGroup 18254 1 [sym_kString]; AGroup 3 2 syms_5; AGroup 15991 2 syms_6;
     AGroup 15995 2 syms_7; AGroup 15997 2 syms_8; AGroup 15999 2 syms_9; AGroup 16001 2 syms_10;
     AGroup 16009 2 syms_11; SGroup 9525 2 syms_12; SGroup 7769 3 syms_13;
     SGroup 10185 4 syms_14; AGroup 16003 5 syms_15; SGroup 9072 14 syms_17]);
   (250236, 20, [AGroup 5 1 [sym_ppDirective]; AGroup 15987 1 [anon_sym_LBRACK];
     AGroup 15989 1 [anon_sym_LPAREN]; AGroup 15993 1 [anon_sym_POUND];
     AGroup 16007 1 [sym_kSpecialize]; AGroup 16011 1 [sym_kIf]; AGroup 16013 1 [sym_kInherited];
     AGroup 18254 1 [sym_kString]; AGroup 3 2 syms_5; AGroup 15991 2 syms_6;
     AGroup 15995 2 syms_7; AGroup 15997 2 syms_8; AGroup 15999 2 syms_9; AGroup 16001 2 syms_10;
     AGroup 16009 2 syms_11; SGroup 9525 2 syms_12; SGroup 7769 3 syms_13;
     SGroup 10186 4 syms_14; AGroup 16003 5 syms_15; SGroup 9072 14 syms_17]);
   (250327, 20, [AGroup 5 1 [sym_ppDirective]; AGroup 15987 1 [anon_sym_LBRACK];
     AGroup 15989 1 [anon_sym_LPAREN]; AGroup 15993 1 [anon_sym_POUND];
     AGroup 16007 1 [sym_kSpecialize]; AGroup 16011 1 [sym_kIf]; AGroup 16013 1 [sym_kInherited];
     AGroup 18254 1 [sym_kString]; AGroup 3 2 syms_5; AGroup 15991 2 syms_6;
     AGroup 15995 2 syms_7; AGroup 15997 2 syms_8; AGroup 15999 2 syms_9; AGroup 16001 2 syms_10;
     AGroup 16009 2 syms_11; SGroup 9525 2 syms_12; SGroup 7769 3 syms_13;
     SGroup 10187 4 syms_14; AGroup 16003 5 syms_15; SGroup 9072 14 syms_17]);
   (250418, 20, [AGroup 5 1 [sym_ppDirective]; AGroup 15987 1 [anon_sym_LBRACK];
     AGroup 15989 1 [anon_sym_LPAREN]; AGroup 15993 1 [anon_sym_POUND];
     AGroup 16007 1 [sym_kSpecialize]; AGroup 16011 1 [sym_kIf]; AGroup 16013 1 [sym_kInherited];
     AGroup 18254 1 [sym_kString]; AGroup 3 2 syms_5; AGroup 15991 2 syms_6;
     AGroup 15995 2 syms_7; AGroup 15997 2 syms_8; AGroup 15999 2 syms_9; AGroup 16001 2 syms_10;
     AGroup 16009 2 syms_11; SGroup 9525 2 syms_12; SGroup 7769 3 syms_13;
     SGroup 10188 4 syms_14; AGroup 16003 5 syms_15; SGroup 9072 14 syms_17]);
   (250509, 20, [AGroup 5 1 [sym_ppDirective]; AGroup 15987 1 [anon_sym_LBRACK];
     AGroup 15989 1 [anon_sym_LPAREN]; AGroup 15993 1 [anon_sym_POUND];
     AGroup 16007 1 [sym_kSpecialize]; AGroup 16011 1 [sym_kIf]; AGroup 16013 1 [sym_kInherited];
     AGroup 18254 1 [sym_kString]; AGroup 3 2 syms_5; AGroup 15991 2 syms_6;
     AGroup 15995 2 syms_7; AGroup 15997 2 syms_8; AGroup 15999 2 syms_9; AGroup 16001 2 syms_10;
     AGroup 16009 2 syms_11; SGroup 9525 2 syms_12; SGroup 7769 3 syms_13;
     SGroup 10189 4 syms_14; AGroup 16003 5 syms_15; SGroup 9072 14 syms_17]);
   (250600, 20, [AGroup 5 1 [sym_ppDirective]; AGroup 15987 1 [anon_sym_LBRACK];
     AGroup 15989 1 [anon_sym_LPAREN]; AGroup 15993 1 [anon_sym_POUND];
     AGroup 16007 1 [sym_kSpecialize]; AGroup 16011 1 [sym_kIf]; AGroup 16013 1 [sym_kInherited];
     AGroup 18254 1 [sym_kString]; AGroup 3 2 syms_5; AGroup 15991 2 syms_6;
     AGroup 15995 2 syms_7; AGroup 15997 2 syms_8; AGroup 15999 2 syms_9; AGroup 16001 2 syms_10;
     AGroup 16009 2 syms_11; SGroup 9525 2 syms_12; SGroup 7769 3 syms_13;
     SGroup 10190 4 syms_14; AGroup 16003 5 syms_15; SGroup 9072 14 syms_17]);
   (250691, 20, [AGroup 5 1 [sym_ppDirective]; AGroup 15987 1 [anon_sym_LBRACK];
     AGroup 15989 1 [anon_sym_LPAREN]; AGroup 15993 1 [anon_sym_POUND];
     AGroup 16007 1 [sym_kSpecialize]; AGroup 16011 1 [sym_kIf]; AGroup 16013 1 [sym_kInherited];
     AGroup 18254 1 [sym_kString]; AGroup 3 2 syms_5; AGroup 15991 2 syms_6;
     AGroup 15995 2 syms_7; AGroup 15997 2 syms_8; AGroup 15999 2 syms_9; AGroup 16001 2 syms_10;
     AGroup 16009 2 syms_11; SGroup 9525 2 syms_12; SGroup 7769 3 syms_13;
     SGroup 10191 4 syms_14; AGroup 16003 5 syms_15; SGroup 9072 14 syms_17]);
   (250782, 20, [AGroup 5 1 [sym_ppDirective]; AGroup 15987 1 [anon_sym_LBRACK];
     AGroup 15989 1 [anon_sym_LPAREN]; AGroup 15993 1 [anon_sym_POUND];
     AGroup 16007 1 [sym_kSpecialize]; AGroup 16011 1 [sym_kIf]; AGroup 16013 1 [sym_kInherited];
     AGroup 18254 1 [sym_kString]; AGroup 3 2 syms_5; AGroup 15991 2 syms_6;
     AGroup 15995 2 syms_7; AGroup 15997 2 syms_8; AGroup 15999 2 syms_9; AGroup 16001 2 syms_10;
     AGroup 16009 2 syms_11; SGroup 9525 2 syms_12; SGroup 7769 3 syms_13;
     SGroup 10192 4 syms_14; AGroup 16003 5 syms_15; SGroup 9072 14 syms_17]);
   (250873, 20, [AGroup 5 1 [sym_ppDirective]; AGroup 15987 1 [anon_sym_LBRACK];
     AGroup 15989 1 [anon_sym_LPAREN]; AGroup 15993 1 [anon_sym_POUND];
     AGroup 16007 1 [sym_kSpecialize]; AGroup 16011 1 [sym_kIf]; AGroup 16013 1 [sym_kInherited];
     AGroup 18254 1 [sym_kString]; AGroup 3 2 syms_5; AGroup 15991 2 syms_6;
     AGroup 15995 2 syms_7; AGroup 15997 2 syms_8; AGroup 15999 2 syms_9; AGroup 16001 2 syms_10;
     AGroup 16009 2 syms_11; SGroup 9525 2 syms_12; SGroup 7769 3 syms_13;
     SGroup 10193 4 syms_14; AGroup 16003 5 syms_15; SGroup 9072 14 syms_17]);
   (250964, 20, [AGroup 5 1 [sym_ppDirective]; AGroup 15987 1 [anon_sym_LBRACK];
     AGroup 15989 1 [anon_sym_LPAREN]; AGroup 15993 1 [anon_sym_POUND];
     AGroup 16007 1 [sym_kSpecialize]; AGroup 16011 1 [sym_kIf]; AGroup 16013 1 [sym_kInherited];
     AGroup 18254 1 [sym_kString]; AGroup 3 2 syms_5; AGroup 15991 2 syms_6;
     AGroup 15995 2 syms_7; AGroup 15997 2 syms_8; AGroup 15999 2 syms_9; AGroup 16001 2 syms_10;
     AGroup 16009 2 syms_11; SGroup 9525 2 syms_12; SGroup 7769 3 syms_13;
     SGroup 10194 4 syms_14; AGroup 16003 5 syms_15; SGroup 9072 14 syms_17]);
   (251055, 20, [AGroup 5 1 [sym_ppDirective]; AGroup 15987 1 [anon_sym_LBRACK];
     AGroup 15989 1 [anon_sym_LPAREN]; AGroup 15993 1 [anon_sym_POUND];
     AGroup 16007 1 [sym_kSpecialize]; AGroup 16011 1 [sym_kIf]; AGroup 16013 1 [sym_kInherited];
     AGroup 18254 1 [sym_kString]; AGroup 3 2 syms_5; AGroup 15991 2 syms_6;
     AGroup 15995 2 syms_7; AGroup 15997 2 syms_8; AGroup 15999 2 syms_9; AGroup 16001 2 syms_10;
     AGroup 16009 2 syms_11; SGroup 9525 2 syms_12; SGroup 7769 3 syms_13;
     SGroup 10195 4 syms_14; AGroup 16003 5 syms_15; SGroup 9072 14 syms_17]);
   (251146, 20, [AGroup 5 1 [sym_ppDirective]; AGroup 15987 1 [anon_sym_LBRACK];
     AGroup 15989 1 [anon_sym_LPAREN]; AGroup 15993 1 [anon_sym_POUND];
     AGroup 16007 1 [sym_kSpecialize]; AGroup 16011 1 [sym_kIf]; AGroup 16013 1 [sym_kInherited];
     AGroup 18254 1 [sym_kString]; AGroup 3 2 syms_5; AGroup 15991 2 syms_6;
     AGroup 15995 2 syms_7; AGroup 15997 2 syms_8; AGroup 15999 2 syms_9; AGroup 16001 2 syms_10;
     AGroup 16009 2 syms_11; SGroup 9525 2 syms_12; SGroup 7769 3 syms_13;
     SGroup 10196 4 syms_14; AGroup 16003 5 syms_15; SGroup 9072 14 syms_17]);
   (251237, 20, [AGroup 5 1 [sym_ppDirective]; AGroup 15987 1 [anon_sym_LBRACK];
     AGroup 15989 1 [anon_sym_LPAREN]; AGroup 15993 1 [anon_sym_POUND];
     AGroup 16007 1 [sym_kSpecialize]; AGroup 16011 1 [sym_kIf]; AGroup 16013 1 [sym_kInherited];
     AGroup 18254 1 [sym_kString]; AGroup 3 2 syms_5; AGroup 15991 2 syms_6;
     AGroup 15995 2 syms_7; AGroup 15997 2 syms_8; AGroup 15999 2 syms_9; AGroup 16001 2 syms_10;
     AGroup 16009 2 syms_11; SGroup 9525 2 syms_12; SGroup 7769 3 syms_13;
     SGroup 10197 4 syms_14; AGroup 16003 5 syms_15; SGroup 9072 14 syms_17]);
   (251328, 20, [AGroup 5 1 [sym_ppDirective]; AGroup 15987 1 [anon_sym_LBRACK];
     AGroup 15989 1 [anon_sym_LPAREN]; AGroup 15993 1 [anon_sym_POUND];
     AGroup 16007 1 [sym_kSpecialize]; AGroup 16011 1 [sym_kIf]; AGroup 16013 1 [sym_kInherited];
     AGroup 18254 1 [sym_kString]; AGroup 3 2 syms_5; AGroup 15991 2 syms_6;
     AGroup 15995 2 syms_7; AGroup 15997 2 syms_8; AGroup 15999 2 syms_9; AGroup 16001 2 syms_10;
     AGroup 16009 2 syms_11; SGroup 9525 2 syms_12; SGroup 7769 3 syms_13;
     SGroup 10198 4 syms_14; AGroup 16003 5 syms_15; SGroup 9072 14 syms_17]);
   (251419, 20, [AGroup 5 1 [sym_ppDirective]; AGroup 15987 1 [anon_sym_LBRACK];
     AGroup 15989 1 [anon_sym_LPAREN]; AGroup 15993 1 [anon_sym_POUND];
     AGroup 16007 1 [sym_kSpecialize]; AGroup 16011 1 [sym_kIf]; AGroup 16013 1 [sym_kInherited];
     AGroup 18254 1 [sym_kString]; AGroup 3 2 syms_5; AGroup 15991 2 syms_6;
     AGroup 15995 2 syms_7; AGroup 15997 2 syms_8; AGroup 15999 2 syms_9; AGroup 16001 2 syms_10;
     AGroup 16009 2 syms_11; SGroup 9525 2 syms_12; SGroup 7769 3 syms_13;
     SGroup 10199 4 syms_14; AGroup 16003 5 syms_15; SGroup 9072 14 syms_17]);
   (251510, 20, [AGroup 5 1 [sym_ppDirective]; AGroup 15987 1 [anon_sym_LBRACK];
     AGroup 15989 1 [anon_sym_LPAREN]; AGroup 15993 1 [anon_sym_POUND];
     AGroup 16007 1 [sym_kSpecialize]; AGroup 16011 1 [sym_kIf]; AGroup 16013 1 [sym_kInherited];
     AGroup 18254 1 [sym_kString]; AGroup 3 2 syms_5; AGroup 15991 2 syms_6;
     AGroup 15995 2 syms_7; AGroup 15997 2 syms_8; AGroup 15999 2 syms_9; AGroup 16001 2 syms_10;
     AGroup 16009 2 syms_11; SGroup 9525 2 syms_12; SGroup 7769 3 syms_13;
     SGroup 10200 4 syms_14; AGroup 16003 5 syms_15; SGroup 9072 14 syms_17]);
   (251601, 20, [AGroup 5 1 [sym_ppDirective]; AGroup 15987 1 [anon_sym_LBRACK];
     AGroup 15989 1 [anon_sym_LPAREN]; AGroup 15993 1 [anon_sym_POUND];
     AGroup 16007 1 [sym_kSpecialize]; AGroup 16011 1 [sym_kIf]; AGroup 16013 1 [sym_kInherited];
     AGroup 18254 1 [sym_kString]; AGroup 3 2 syms_5; AGroup 15991 2 syms_6;
     AGroup 15995 2 syms_7; AGroup 15997 2 syms_8; AGroup 15999 2 syms_9; AGroup 16001 2 syms_10;
     AGroup 16009 2 syms_11; SGroup 9525 2 syms_12; SGroup 7769 3 syms_13;
     SGroup 10201 4 syms_14; AGroup 16003 5 syms_15; SGroup 9072 14 syms_17]);
   (251692, 20, [AGroup 5 1 [sym_ppDirective]; AGroup 15987 1 [anon_sym_LBRACK];
     AGroup 15989 1 [anon_sym_LPAREN]; AGroup 15993 1 [anon_sym_POUND];
     AGroup 16007 1 [sym_kSpecialize]; AGroup 16011 1 [sym_kIf]; AGroup 16013 1 [sym_kInherited];
     AGroup 18254 1 [sym_kString]; AGroup 3 2 syms_5; AGroup 15991 2 syms_6;
     AGroup 15995 2 syms_7; AGroup 15997 2 syms_8; AGroup 15999 2 syms_9; AGroup 16001 2 syms_10;
     AGroup 16009 2 syms_11; SGroup 9525 2 syms_12; SGroup 7769 3 syms_13;
     SGroup 10202 4 syms_14; AGroup 16003 5 syms_15; SGroup 9072 14 syms_17]);
   (251783, 20, [AGroup 5 1 [sym_ppDirective]; AGroup 15987 1 [anon_sym_LBRACK];
     AGroup 15989 1 [anon_sym_LPAREN]; AGroup 15993 1 [anon_sym_POUND];
     AGroup 16007 1 [sym_kSpecialize]; AGroup 16011 1 [sym_kIf]; AGroup 16013 1 [sym_kInherited];
     AGroup 18254 1 [sym_kString]; AGroup 3 2 syms_5; AGroup 15991 2 syms_6;
     AGroup 15995 2 syms_7; AGroup 15997 2 syms_8; AGroup 15999 2 syms_9; AGroup 16001 2 syms_10;
     AGroup 16009 2 syms_11; SGroup 9525 2 syms_12; SGroup 7769 3 syms_13;
     SGroup 10203 4 syms_14; AGroup 16003 5 syms_15; SGroup 9072 14 syms_17]);
   (251874, 20, [AGroup 5 1 [sym_ppDirective]; AGroup 15987 1 [anon_sym_LBRACK];
     AGroup 15989 1 [anon_sym_LPAREN]; AGroup 15993 1 [anon_sym_POUND];
     AGroup 16007 1 [sym_kSpecialize]; AGroup 16011 1 [sym_kIf]; AGroup 16013 1 [sym_kInherited];
     AGroup 18254 1 [sym_kString]; AGroup 3 2 syms_5; AGroup 15991 2 syms_6;
     AGroup 15995 2 syms_7; AGroup 15997 2 syms_8; AGroup 15999 2 syms_9; AGroup 16001 2 syms_10;
     AGroup 16009 2 syms_11; SGroup 9525 2 syms_12; SGroup 7769 3 syms_13;
     SGroup 10204 4 syms_14; AGroup 16003 5 syms_15; SGroup 9072 14 syms_17]);
   (251965, 20, [AGroup 5 1 [sym_ppDirective]; AGroup 15987 1 [anon_sym_LBRACK];
     AGroup 15989 1 [anon_sym_LPAREN]; AGroup 15993 1 [anon_sym_POUND];
     AGroup 16007 1 [sym_kSpecialize]; AGroup 16011 1 [sym_kIf]; AGroup 16013 1 [sym_kInherited];
     AGroup 18254 1 [sym_kString]; AGroup 3 2 syms_5; AGroup 15991 2 syms_6;
     AGroup 15995 2 syms_7; AGroup 15997 2 syms_8; AGroup 15999 2 syms_9; AGroup 16001 2 syms_10;
     AGroup 16009 2 syms_11; SGroup 9525 2 syms_12; SGroup 7769 3 syms_13;
     SGroup 10205 4 syms_14; AGroup 16003 5 syms_15; SGroup 9072 14 syms_17]);
   (252056, 20, [AGroup 5 1 [sym_ppDirective]; AGroup 15987 1 [anon_sym_LBRACK];
     AGroup 15989 1 [anon_sym_LPAREN]; AGroup 15993 1 [anon_sym_POUND];
     AGroup 16007 1 [sym_kSpecialize]; AGroup 16011 1 [sym_kIf]; AGroup 16013 1 [sym_kInherited];
     AGroup 18254 1 [sym_kString]; AGroup 3 2 syms_5; AGroup 15991 2 syms_6;
     AGroup 15995 2 syms_7; AGroup 15997 2 syms_8; AGroup 15999 2 syms_9; AGroup 16001 2 syms_10;
     AGroup 16009 2 syms_11; SGroup 9525 2 syms_12; SGroup 7769 3 syms_13;
     SGroup 10206 4 syms_14; AGroup 16003 5 syms_15; SGroup 9072 14 syms_17]);
   (252147, 20, [AGroup 5 1 [sym_ppDirective]; AGroup 15987 1 [anon_sym_LBRACK];
     AGroup 15989 1 [anon_sym_LPAREN]; AGroup 15993 1 [anon_sym_POUND];
     AGroup 16007 1 [sym_kSpecialize]; AGroup 16011 1 [sym_kIf]; AGroup 16013 1 [sym_kInherited];
     AGroup 18254 1 [sym_kString]; AGroup 3 2 syms_5; AGroup 15991 2 syms_6;
     AGroup 15995 2 syms_7; AGroup 15997 2 syms_8; AGroup 15999 2 syms_9; AGroup 16001 2 syms_10;
     AGroup 16009 2 syms_11; SGroup 9525 2 syms_12; SGroup 7769 3 syms_13;
     SGroup 10207 4 syms_14; AGroup 16003 5 syms_15; SGroup 9072 14 syms_17]);
   (252238, 20, [AGroup 5 1 [sym_ppDirective]; AGroup 15987 1 [anon_sym_LBRACK];
     AGroup 15989 1 [anon_sym_LPAREN]; AGroup 15993 1 [anon_sym_POUND];
     AGroup 16007 1 [sym_kSpecialize]; AGroup 16011 1 [sym_kIf]; AGroup 16013 1 [sym_kInherited];
     AGroup 18254 1 [sym_kString]; AGroup 3 2 syms_5; AGroup 15991 2 syms_6;
     AGroup 15995 2 syms_7; AGroup 15997 2 syms_8; AGroup 15999 2 syms_9; AGroup 16001 2 syms_10;
     AGroup 16009 2 syms_11; SGroup 9525 2 syms_12; SGroup 7769 3 syms_13;
     SGroup 10209 4 syms_14; AGroup 16003 5 syms_15; SGroup 9072 14 syms_17]);
   (252329, 20, [AGroup 5 1 [sym_ppDirective]; AGroup 15987 1 [anon_sym_LBRACK];
     AGroup 15989 1 [anon_sym_LPAREN]; AGroup 15993 1 [anon_sym_POUND];
     AGroup 16007 1 [sym_kSpecialize]; AGroup 16011 1 [sym_kIf]; AGroup 16013 1 [sym_kInherited];
     AGroup 18254 1 [sym_kString]; AGroup 3 2 syms_5; AGroup 15991 2 syms_6;
     AGroup 15995 2 syms_7; AGroup 15997 2 syms_8; AGroup 15999 2 syms_9; AGroup 16001 2 syms_10;
     AGroup 16009 2 syms_11; SGroup 9525 2 syms_12; SGroup 7769 3 syms_13;
     SGroup 10217 4 syms_14; AGroup 16003 5 syms_15; SGroup 9072 14 syms_17]);
   (252420, 4, [AGroup 5 1 [sym_ppDirective]; AGroup 3 2 syms_5; AGroup 15295 4 syms_25;
     AGroup 15293 43 syms_165]);
   (252479, 20, [AGroup 5 1 [sym_ppDirective]; AGroup 16021 1 [anon_sym_LBRACK];
     AGroup 16023 1 [anon_sym_LPAREN]; AGroup 16027 1 [anon_sym_POUND];
     AGroup 16041 1 [sym_kSpecialize]; AGroup 16045 1 [sym_kIf]; AGroup 16047 1 [sym_kInherited];
     AGroup 17344 1 [sym_kString]; AGroup 3 2 syms_5; AGroup 16025 2 syms_6;
     AGroup 16029 2 syms_7; AGroup 16031 2 syms_8; AGroup 16033 2 syms_9; AGroup 16035 2 syms_10;
     AGroup 16043 2 syms_11; SGroup 9151 2 syms_12; SGroup 7393 3 syms_13; SGroup 8674 4 syms_14;
     AGroup 16037 5 syms_15; SGroup 8705 14 syms_17]);
   (252570, 4, [AGroup 18668 1 [sym_identifier]; SGroup 5140 1 [aux_sym_declVar_repeat1]; AGroup 3 3 syms_1;
     AGroup 18670 45 syms_162]);
   (252629, 4, [AGroup 5 1 [sym_ppDirective]; AGroup 3 2 syms_5; AGroup 15355 4 syms_25;
     AGroup 15353 43 syms_165]);
   (252688, 20, [AGroup 5 1 [sym_ppDirective]; AGroup 16021 1 [anon_sym_LBRACK];
     AGroup 16023 1 [anon_sym_LPAREN]; AGroup 16027 1 [anon_sym_POUND];
     AGroup 16041 1 [sym_kSpecialize]; AGroup 16045 1 [sym_kIf]; AGroup 16047 1 [sym_kInherited];
     AGroup 17344 1 [sym_kString]; AGroup 3 2 syms_5; AGroup 16025 2 syms_6;
     AGroup 16029 2 syms_7; AGroup 16031 2 syms_8; AGroup 16033 2 syms_9; AGroup 16035 2 syms_10;
     AGroup 16043 2 syms_11; SGroup 9151 2 syms_12; SGroup 7393 3 syms_13; SGroup 8736 4 syms_14;
     AGroup 16037 5 syms_15; SGroup 8705 14 syms_17]);
   (252779, 20, [AGroup 5 1 [sym_ppDirective]; AGroup 15987 1 [anon_sym_LBRACK];
     AGroup 15989 1 [anon_sym_LPAREN]; AGroup 15993 1 [anon_sym_POUND];
     AGroup 16007 1 [sym_kSpecialize]; AGroup 16011 1 [sym_kIf]; AGroup 16013 1 [sym_kInherited];
     AGroup 18254 1 [sym_kString]; AGroup 3 2 syms_5; AGroup 15991 2 syms_6;
     AGroup 15995 2 syms_7; AGroup 15997 2 syms_8; AGroup 15999 2 syms_9; AGroup 16001 2 syms_10;
     AGroup 16009 2 syms_11; SGroup 9525 2 syms_12; SGroup 7769 3 syms_13;
     SGroup 10245 4 syms_14; AGroup 16003 5 syms_15; SGroup 9072 14 syms_17]);
   (252870, 20, [AGroup 5 1 [sym_ppDirective]; AGroup 15761 1 [anon_sym_LBRACK];
     AGroup 15763 1 [anon_sym_LPAREN]; AGroup 15767 1 [anon_sym_POUND];
     AGroup 15781 1 [sym_kSpecialize]; AGroup 15785 1 [sym_kIf]; AGroup 15787 1 [sym_kInherited];
     AGroup 17864 1 [sym_kString]; AGroup 3 2 syms_5; AGroup 15765 2 syms_6;
     AGroup 15769 2 syms_7; AGroup 15771 2 syms_8; AGroup 15773 2 syms_9; AGroup 15775 2 syms_10;
     AGroup 15783 2 syms_11; SGroup 9180 2 syms_12; SGroup 7467 3 syms_13; SGroup 8808 4 syms_14;
     AGroup 15777 5 syms_15; SGroup 8804 14 syms_17]);
   (252961, 4, [AGroup 5 1 [sym_ppDirective]; AGroup 3 2 syms_5; AGroup 10860 5 syms_150;
     AGroup 10858 41 syms_166]);
   (253019, 5, [AGroup 5 1 [sym_ppDirective]; AGroup 3 2 syms_5; AGroup 15492 4 syms_25;
     AGroup 15403 18 syms_36; AGroup 15490 24 syms_167]);
   (253079, 4, [AGroup 5 1 [sym_ppDirective]; AGroup 3 2 syms_5; AGroup 15355 4 syms_25;
     AGroup 15353 42 syms_168]);
   (253137, 5, [AGroup 5 1 [sym_ppDirective]; AGroup 3 2 syms_5; AGroup 15473 4 syms_25;
     AGroup 15403 18 syms_36; AGroup 15471 24 syms_169]);
   (253197, 5, [AGroup 5 1 [sym_ppDirective]; AGroup 3 2 syms_5; AGroup 15401 4 syms_25;
     AGroup 15403 18 syms_36; AGroup 15399 24 syms_167]);
   (253257, 5, [AGroup 5 1 [sym_ppDirective]; AGroup 3 2 syms_5; AGroup 15439 4 syms_25;
     AGroup 15403 18 syms_36; AGroup 15437 24 syms_167]);
   (253317, 5, [AGroup 5 1 [sym_ppDirective]; AGroup 3 2 syms_5; AGroup 15504 4 syms_25;
     AGroup 15403 18 syms_36; AGroup 15502 24 syms_170]);
   (253377, 5, [AGroup 5 1 [sym_ppDirective]; AGroup 3 2 syms_5; AGroup 15504 4 syms_25;
     AGroup 15403 18 syms_36; AGroup 15502 24 syms_169]);
   (253437, 4, [AGroup 5 1 [sym_ppDirective]; AGroup 3 2 syms_5; AGroup 15355 4 syms_25;
     AGroup 15353 42 syms_171]);
   (253495, 5, [AGroup 5 1 [sym_ppDirective]; AGroup 3 2 syms_5; AGroup 15484 4 syms_25;
     AGroup 15403 18 syms_36; AGroup 15482 24 syms_169]);
   (253555, 5, [AGroup 5 1 [sym_ppDirective]; AGroup 3 2 syms_5; AGroup 15484 4 syms_25;
     AGroup 15403 18 syms_36; AGroup 15482 24 syms_170]);
   (253615, 5, [AGroup 5 1 [sym_ppDirective]; AGroup 3 2 syms_5; AGroup 15492 4 syms_25;
     AGroup 15403 18 syms_36; AGroup 15490 24 syms_169]);
   (253675, 5, [AGroup 5 1 [sym_ppDirective]; AGroup 3 2 syms_5; AGroup 15401 4 syms_25;
     AGroup 15403 18 syms_36; AGroup 15399 24 syms_169]);
   (253735, 5, [AGroup 5 1 [sym_ppDirective]; AGroup 18672 1 [sym_kElse]; AGroup 3 2 syms_5;
     AGroup 10722 5 syms_150; AGroup 10720 40 syms_172]);
   (253795, 5, [AGroup 5 1 [sym_ppDirective]; AGroup 3 2 syms_5; AGroup 15488 4 syms_25;
     AGroup 15403 18 syms_36; AGroup 15486 24 syms_167]);
   (253855, 2, [AGroup 3 3 syms_1; AGroup 18674 46 syms_173]);
   (253909, 5, [AGroup 5 1 [sym_ppDirective]; AGroup 3 2 syms_5; AGroup 15439 4 syms_25;
     AGroup 15403 18 syms_36; AGroup 15437 24 syms_169]);
   (253969, 5, [AGroup 5 1 [sym_ppDirective]; AGroup 3 2 syms_5; AGroup 15488 4 syms_25;
     AGroup 15403 18 syms_36; AGroup 15486 24 syms_169]);
   (254029, 30, [AGroup 5 1 [sym_ppDirective]; AGroup 13347 1 [anon_sym_LBRACK];
     AGroup 13351 1 [aux_sym_ppUsesBlock_token1]; AGroup 13365 1 [sym_identifier];
     AGroup 13367 1 [sym_kGeneric]; AGroup 13369 1 [sym_kOperator]; AGroup 13373 1 [sym_kStrict];
     AGroup 13377 1 [sym_kCase]; AGroup 13379 1 [sym_kClass]; AGroup 13391 1 [sym_kProperty];
     AGroup 13395 1 [sym_kType]; AGroup 18676 1 [sym_kEnd]; SGroup 2 1 [sym__ppIf];
     SGroup 6354 1 [sym__visibility]; SGroup 9779 1 [sym_ppBlock];
     SGroup 9835 1 [sym__declOperator]; SGroup 10247 1 [sym__declProc];
     SGroup 10617 1 [sym_rttiAttributes]; SGroup 10730 1 [aux_sym_rttiAttributes_repeat2];
     SGroup 12086 1 [sym__declClass]; SGroup 13987 1 [aux_sym_genericArg_repeat1];
     SGroup 14434 1 [sym_declVariant]; AGroup 3 2 syms_5; AGroup 13381 2 syms_65;
     AGroup 13393 2 syms_66; SGroup 5685 2 syms_68; SGroup 10490 3 syms_69;
     AGroup 13383 4 syms_3; AGroup 13371 6 syms_70; SGroup 6150 6 syms_71]);
   (254139, 5, [AGroup 5 1 [sym_ppDirective]; AGroup 3 2 syms_5; AGroup 15484 4 syms_25;
     AGroup 15403 18 syms_36; AGroup 15482 24 syms_174]);
   (254199, 5, [AGroup 5 1 [sym_ppDirective]; AGroup 3 2 syms_5; AGroup 15504 4 syms_25;
     AGroup 15403 18 syms_36; AGroup 15502 24 syms_175]);
   (254259, 5, [AGroup 5 1 [sym_ppDirective]; AGroup 3 2 syms_5; AGroup 15492 4 syms_25;
     AGroup 15403 18 syms_36; AGroup 15490 24 syms_170]);
   (254319, 5, [AGroup 5 1 [sym_ppDirective]; AGroup 3 2 syms_5; AGroup 15484 4 syms_25;
     AGroup 15403 18 syms_36; AGroup 15482 24 syms_175]);
   (254379, 5, [AGroup 5 1 [sym_ppDirective]; AGroup 3 2 syms_5; AGroup 15496 4 syms_25;
     AGroup 15403 18 syms_36; AGroup 15494 24 syms_169]);
   (254439, 5, [AGroup 5 1 [sym_ppDirective]; AGroup 3 2 syms_5; AGroup 15504 4 syms_25;
     AGroup 15403 18 syms_36; AGroup 15502 24 syms_176]);
   (254499, 5, [AGroup 5 1 [sym_ppDirective]; AGroup 3 2 syms_5; AGroup 15484 4 syms_25;
     AGroup 15403 18 syms_36; AGroup 15482 24 syms_176]);
   (254559, 5, [AGroup 5 1 [sym_ppDirective]; AGroup 3 2 syms_5; AGroup 15401 4 syms_25;
     AGroup 15403 18 syms_36; AGroup 15399 24 syms_170]);
   (254619, 5, [AGroup 5 1 [sym_ppDirective]; AGroup 3 2 syms_5; AGroup 15492 4 syms_25;
     AGroup 15403 18 syms_36; AGroup 15490 24 syms_175]);
   (254679, 5, [AGroup 5 1 [sym_ppDirective]; AGroup 3 2 syms_5; AGroup 15439 4 syms_25;
     AGroup 15403 18 syms_36; AGroup 15437 24 syms_170])
  ].

(** States 5559 to 5658. *)
Definition small_runs_5559 : list small_run :=
  [
   (254739, 5, [AGroup 5 1 [sym_ppDirective]; AGroup 3 2 syms_5; AGroup 15488 4 syms_25;
     AGroup 15403 18 syms_36; AGroup 15486 24 syms_170]);
   (254799, 5, [AGroup 5 1 [sym_ppDirective]; AGroup 3 2 syms_5; AGroup 15473 4 syms_25;
     AGroup 15403 18 syms_36; AGroup 15471 24 syms_176]);
   (254859, 4, [AGroup 5 1 [sym_ppDirective]; AGroup 3 2 syms_5; AGroup 15295 4 syms_25;
     AGroup 15293 42 syms_177]);
   (254917, 5, [AGroup 5 1 [sym_ppDirective]; AGroup 3 2 syms_5; AGroup 15496 4 syms_25;
     AGroup 15403 18 syms_36; AGroup 15494 24 syms_170]);
   (254977, 5, [AGroup 5 1 [sym_ppDirective]; AGroup 3 2 syms_5; AGroup 15401 4 syms_25;
     AGroup 15403 18 syms_36; AGroup 15399 24 syms_175]);
   (255037, 3, [AGroup 18678 1 [sym_identifier]; AGroup 3 3 syms_1; AGroup 18681 45 syms_162]);
   (255093, 5, [AGroup 5 1 [sym_ppDirective]; AGroup 3 2 syms_5; AGroup 15439 4 syms_25;
     AGroup 15403 18 syms_36; AGroup 15437 24 syms_175]);
   (255153, 5, [AGroup 5 1 [sym_ppDirective]; AGroup 3 2 syms_5; AGroup 15488 4 syms_25;
     AGroup 15403 18 syms_36; AGroup 15486 24 syms_175]);
   (255213, 5, [AGroup 5 1 [sym_ppDirective]; AGroup 3 2 syms_5; AGroup 15496 4 syms_25;
     AGroup 15403 18 syms_36; AGroup 15494 24 syms_175]);
   (255273, 4, [AGroup 5 1 [sym_ppDirective]; AGroup 3 2 syms_5; AGroup 15295 4 syms_25;
     AGroup 15293 42 syms_178]);
   (255331, 5, [AGroup 5 1 [sym_ppDirective]; AGroup 3 2 syms_5; AGroup 15439 4 syms_25;
     AGroup 15403 18 syms_36; AGroup 15437 24 syms_176]);
   (255391, 5, [AGroup 5 1 [sym_ppDirective]; AGroup 3 2 syms_5; AGroup 15473 4 syms_25;
     AGroup 15403 18 syms_36; AGroup 15471 24 syms_179]);
   (255451, 30, [AGroup 5 1 [sym_ppDirective]; AGroup 13347 1 [anon_sym_LBRACK];
     AGroup 13351 1 [aux_sym_ppUsesBlock_token1]; AGroup 13365 1 [sym_identifier];
     AGroup 13367 1 [sym_kGeneric]; AGroup 13369 1 [sym_kOperator]; AGroup 13373 1 [sym_kStrict];
     AGroup 13377 1 [sym_kCase]; AGroup 13379 1 [sym_kClass]; AGroup 13391 1 [sym_kProperty];
     AGroup 13395 1 [sym_kType]; AGroup 18683 1 [sym_kEnd]; SGroup 2 1 [sym__ppIf];
     SGroup 6354 1 [sym__visibility]; SGroup 9779 1 [sym_ppBlock];
     SGroup 9835 1 [sym__declOperator]; SGroup 10247 1 [sym__declProc];
     SGroup 10617 1 [sym_rttiAttributes]; SGroup 10730 1 [aux_sym_rttiAttributes_repeat2];
     SGroup 13212 1 [sym__declClass]; SGroup 13987 1 [aux_sym_genericArg_repeat1];
     SGroup 14184 1 [sym_declVariant]; AGroup 3 2 syms_5; AGroup 13381 2 syms_65;
     AGroup 13393 2 syms_66; SGroup 5689 2 syms_68; SGroup 10499 3 syms_69;
     AGroup 13383 4 syms_3; AGroup 13371 6 syms_70; SGroup 6170 6 syms_71]);
   (255561, 4, [AGroup 5 1 [sym_ppDirective]; AGroup 3 2 syms_5; AGroup 15295 4 syms_25;
     AGroup 15293 42 syms_180]);
   (255619, 4, [AGroup 5 1 [sym_ppDirective]; AGroup 3 2 syms_5; AGroup 15355 4 syms_25;
     AGroup 15353 42 syms_178]);
   (255677, 5, [AGroup 5 1 [sym_ppDirective]; AGroup 3 2 syms_5; AGroup 15496 4 syms_25;
     AGroup 15403 18 syms_36; AGroup 15494 24 syms_167]);
   (255737, 4, [AGroup 5 1 [sym_ppDirective]; AGroup 3 2 syms_5; AGroup 15355 4 syms_25;
     AGroup 15353 42 syms_180]);
   (255795, 30, [AGroup 5 1 [sym_ppDirective]; AGroup 13347 1 [anon_sym_LBRACK];
     AGroup 13351 1 [aux_sym_ppUsesBlock_token1]; AGroup 13365 1 [sym_identifier];
     AGroup 13367 1 [sym_kGeneric]; AGroup 13369 1 [sym_kOperator]; AGroup 13373 1 [sym_kStrict];
     AGroup 13377 1 [sym_kCase]; AGroup 13379 1 [sym_kClass]; AGroup 13391 1 [sym_kProperty];
     AGroup 13395 1 [sym_kType]; AGroup 18685 1 [sym_kEnd]; SGroup 2 1 [sym__ppIf];
     SGroup 6354 1 [sym__visibility]; SGroup 9779 1 [sym_ppBlock];
     SGroup 9835 1 [sym__declOperator]; SGroup 10247 1 [sym__declProc];
     SGroup 10617 1 [sym_rttiAttributes]; SGroup 10730 1 [aux_sym_rttiAttributes_repeat2];
     SGroup 12222 1 [sym__declClass]; SGroup 13987 1 [aux_sym_genericArg_repeat1];
     SGroup 14434 1 [sym_declVariant]; AGroup 3 2 syms_5; AGroup 13381 2 syms_65;
     AGroup 13393 2 syms_66; SGroup 5685 2 syms_68; SGroup 10490 3 syms_69;
     AGroup 13383 4 syms_3; AGroup 13371 6 syms_70; SGroup 6150 6 syms_71]);
   (255905, 5, [AGroup 5 1 [sym_ppDirective]; AGroup 3 2 syms_5; AGroup 15488 4 syms_25;
     AGroup 15403 18 syms_36; AGroup 15486 24 syms_176]);
   (255965, 4, [AGroup 5 1 [sym_ppDirective]; AGroup 3 2 syms_5; AGroup 15295 4 syms_25;
     AGroup 15293 42 syms_181]);
   (256023, 5, [AGroup 5 1 [sym_ppDirective]; AGroup 3 2 syms_5; AGroup 15504 4 syms_25;
     AGroup 15403 18 syms_36; AGroup 15502 24 syms_182]);
   (256083, 5, [AGroup 5 1 [sym_ppDirective]; AGroup 3 2 syms_5; AGroup 15504 4 syms_25;
     AGroup 15403 18 syms_36; AGroup 15502 24 syms_179]);
   (256143, 5, [AGroup 5 1 [sym_ppDirective]; AGroup 3 2 syms_5; AGroup 15484 4 syms_25;
     AGroup 15403 18 syms_36; AGroup 15482 24 syms_179]);
   (256203, 5, [AGroup 5 1 [sym_ppDirective]; AGroup 3 2 syms_5; AGroup 15492 4 syms_25;
     AGroup 15403 18 syms_36; AGroup 15490 24 syms_174]);
   (256263, 4, [AGroup 5 1 [sym_ppDirective]; AGroup 3 2 syms_5; AGroup 15355 4 syms_25;
     AGroup 15353 42 syms_181]);
   (256321, 5, [AGroup 5 1 [sym_ppDirective]; AGroup 3 2 syms_5; AGroup 15484 4 syms_25;
     AGroup 15403 18 syms_36; AGroup 15482 24 syms_182]);
   (256381, 5, [AGroup 5 1 [sym_ppDirective]; AGroup 3 2 syms_5; AGroup 15473 4 syms_25;
     AGroup 15403 18 syms_36; AGroup 15471 24 syms_182]);
   (256441, 5, [AGroup 5 1 [sym_ppDirective]; AGroup 3 2 syms_5; AGroup 15492 4 syms_25;
     AGroup 15403 18 syms_36; AGroup 15490 24 syms_182]);
   (256501, 5, [AGroup 5 1 [sym_ppDirective]; AGroup 3 2 syms_5; AGroup 15492 4 syms_25;
     AGroup 15403 18 syms_36; AGroup 15490 24 syms_179]);
   (256561, 30, [AGroup 5 1 [sym_ppDirective]; AGroup 13347 1 [anon_sym_LBRACK];
     AGroup 13351 1 [aux_sym_ppUsesBlock_token1]; AGroup 13365 1 [sym_identifier];
     AGroup 13367 1 [sym_kGeneric]; AGroup 13369 1 [sym_kOperator]; AGroup 13373 1 [sym_kStrict];
     AGroup 13377 1 [sym_kCase]; AGroup 13379 1 [sym_kClass]; AGroup 13391 1 [sym_kProperty];
     AGroup 13395 1 [sym_kType]; AGroup 18687 1 [sym_kEnd]; SGroup 2 1 [sym__ppIf];
     SGroup 6354 1 [sym__visibility]; SGroup 9779 1 [sym_ppBlock];
     SGroup 9835 1 [sym__declOperator]; SGroup 10247 1 [sym__declProc];
     SGroup 10617 1 [sym_rttiAttributes]; SGroup 10730 1 [aux_sym_rttiAttributes_repeat2];
     SGroup 13072 1 [sym__declClass]; SGroup 13987 1 [aux_sym_genericArg_repeat1];
     SGroup 14184 1 [sym_declVariant]; AGroup 3 2 syms_5; AGroup 13381 2 syms_65;
     AGroup 13393 2 syms_66; SGroup 5689 2 syms_68; SGroup 10499 3 syms_69;
     AGroup 13383 4 syms_3; AGroup 13371 6 syms_70; SGroup 6170 6 syms_71]);
   (256671, 5, [AGroup 5 1 [sym_ppDirective]; AGroup 3 2 syms_5; AGroup 15401 4 syms_25;
     AGroup 15403 18 syms_36; AGroup 15399 24 syms_179]);
   (256731, 4, [AGroup 5 1 [sym_ppDirective]; AGroup 3 2 syms_5; AGroup 10820 5 syms_150;
     AGroup 10818 41 syms_166]);
   (256789, 4, [AGroup 5 1 [sym_ppDirective]; AGroup 3 2 syms_5; AGroup 15355 4 syms_25;
     AGroup 15353 42 syms_177]);
   (256847, 5, [AGroup 5 1 [sym_ppDirective]; AGroup 3 2 syms_5; AGroup 15439 4 syms_25;
     AGroup 15403 18 syms_36; AGroup 15437 24 syms_179]);
   (256907, 5, [AGroup 5 1 [sym_ppDirective]; AGroup 3 2 syms_5; AGroup 15488 4 syms_25;
     AGroup 15403 18 syms_36; AGroup 15486 24 syms_179]);
   (256967, 30, [AGroup 5 1 [sym_ppDirective]; AGroup 13347 1 [anon_sym_LBRACK];
     AGroup 13351 1 [aux_sym_ppUsesBlock_token1]; AGroup 13365 1 [sym_identifier];
     AGroup 13367 1 [sym_kGeneric]; AGroup 13369 1 [sym_kOperator]; AGroup 13373 1 [sym_kStrict];
     AGroup 13377 1 [sym_kCase]; AGroup 13379 1 [sym_kClass]; AGroup 13391 1 [sym_kProperty];
     AGroup 13395 1 [sym_kType]; AGroup 18689 1 [sym_kEnd]; SGroup 2 1 [sym__ppIf];
     SGroup 6354 1 [sym__visibility]; SGroup 9779 1 [sym_ppBlock];
     SGroup 9835 1 [sym__declOperator]; SGroup 10247 1 [sym__declProc];
     SGroup 10617 1 [sym_rttiAttributes]; SGroup 10730 1 [aux_sym_rttiAttributes_repeat2];
     SGroup 12907 1 [sym__declClass]; SGroup 13987 1 [aux_sym_genericArg_repeat1];
     SGroup 14196 1 [sym_declVariant]; AGroup 3 2 syms_5; AGroup 13381 2 syms_65;
     AGroup 13393 2 syms_66; SGroup 5775 2 syms_68; SGroup 10489 3 syms_69;
     AGroup 13383 4 syms_3; AGroup 13371 6 syms_70; SGroup 6293 6 syms_71]);
   (257077, 5, [AGroup 5 1 [sym_ppDirective]; AGroup 3 2 syms_5; AGroup 15473 4 syms_25;
     AGroup 15403 18 syms_36; AGroup 15471 24 syms_167]);
   (257137, 30, [AGroup 5 1 [sym_ppDirective]; AGroup 13347 1 [anon_sym_LBRACK];
     AGroup 13351 1 [aux_sym_ppUsesBlock_token1]; AGroup 13365 1 [sym_identifier];
     AGroup 13367 1 [sym_kGeneric]; AGroup 13369 1 [sym_kOperator]; AGroup 13373 1 [sym_kStrict];
     AGroup 13377 1 [sym_kCase]; AGroup 13379 1 [sym_kClass]; AGroup 13391 1 [sym_kProperty];
     AGroup 13395 1 [sym_kType]; AGroup 18691 1 [sym_kEnd]; SGroup 2 1 [sym__ppIf];
     SGroup 6354 1 [sym__visibility]; SGroup 9779 1 [sym_ppBlock];
     SGroup 9835 1 [sym__declOperator]; SGroup 10247 1 [sym__declProc];
     SGroup 10617 1 [sym_rttiAttributes]; SGroup 10730 1 [aux_sym_rttiAttributes_repeat2];
     SGroup 13987 1 [aux_sym_genericArg_repeat1]; SGroup 14434 1 [sym_declVariant];
     SGroup 14779 1 [sym__declClass]; AGroup 3 2 syms_5; AGroup 13381 2 syms_65;
     AGroup 13393 2 syms_66; SGroup 5685 2 syms_68; SGroup 10490 3 syms_69;
     AGroup 13383 4 syms_3; AGroup 13371 6 syms_70; SGroup 6150 6 syms_71]);
   (257247, 4, [AGroup 5 1 [sym_ppDirective]; AGroup 3 2 syms_5; AGroup 15295 4 syms_25;
     AGroup 15293 42 syms_183]);
   (257305, 5, [AGroup 5 1 [sym_ppDirective]; AGroup 3 2 syms_5; AGroup 15401 4 syms_25;
     AGroup 15403 18 syms_36; AGroup 15399 24 syms_174]);
   (257365, 5, [AGroup 5 1 [sym_ppDirective]; AGroup 3 2 syms_5; AGroup 15439 4 syms_25;
     AGroup 15403 18 syms_36; AGroup 15437 24 syms_174]);
   (257425, 4, [AGroup 5 1 [sym_ppDirective]; AGroup 3 2 syms_5; AGroup 15355 4 syms_25;
     AGroup 15353 42 syms_183]);
   (257483, 5, [AGroup 5 1 [sym_ppDirective]; AGroup 3 2 syms_5; AGroup 15401 4 syms_25;
     AGroup 15403 18 syms_36; AGroup 15399 24 syms_182]);
   (257543, 5, [AGroup 5 1 [sym_ppDirective]; AGroup 18693 1 [sym_kElse]; AGroup 3 2 syms_5;
     AGroup 10722 5 syms_150; AGroup 10720 40 syms_172]);
   (257603, 5, [AGroup 5 1 [sym_ppDirective]; AGroup 3 2 syms_5; AGroup 15496 4 syms_25;
     AGroup 15403 18 syms_36; AGroup 15494 24 syms_179]);
   (257663, 4, [AGroup 5 1 [sym_ppDirective]; AGroup 3 2 syms_5; AGroup 10722 5 syms_150;
     AGroup 10720 41 syms_166]);
   (257721, 4, [AGroup 5 1 [sym_ppDirective]; AGroup 3 2 syms_5; AGroup 10852 5 syms_150;
     AGroup 10850 41 syms_166]);
   (257779, 4, [AGroup 5 1 [sym_ppDirective]; AGroup 3 2 syms_5; AGroup 10856 5 syms_150;
     AGroup 10854 41 syms_166]);
   (257837, 5, [AGroup 5 1 [sym_ppDirective]; AGroup 3 2 syms_5; AGroup 15492 4 syms_25;
     AGroup 15403 18 syms_36; AGroup 15490 24 syms_176]);
   (257897, 5, [AGroup 5 1 [sym_ppDirective]; AGroup 3 2 syms_5; AGroup 15401 4 syms_25;
     AGroup 15403 18 syms_36; AGroup 15399 24 syms_176]);
   (257957, 5, [AGroup 5 1 [sym_ppDirective]; AGroup 3 2 syms_5; AGroup 15496 4 syms_25;
     AGroup 15403 18 syms_36; AGroup 15494 24 syms_184]);
   (258017, 30, [AGroup 5 1 [sym_ppDirective]; AGroup 13347 1 [anon_sym_LBRACK];
     AGroup 13351 1 [aux_sym_ppUsesBlock_token1]; AGroup 13365 1 [sym_identifier];
     AGroup 13367 1 [sym_kGeneric]; AGroup 13369 1 [sym_kOperator]; AGroup 13373 1 [sym_kStrict];
     AGroup 13377 1 [sym_kCase]; AGroup 13379 1 [sym_kClass]; AGroup 13391 1 [sym_kProperty];
     AGroup 13395 1 [sym_kType]; AGroup 18695 1 [sym_kEnd]; SGroup 2 1 [sym__ppIf];
     SGroup 6354 1 [sym__visibility]; SGroup 9779 1 [sym_ppBlock];
     SGroup 9835 1 [sym__declOperator]; SGroup 10247 1 [sym__declProc];
     SGroup 10617 1 [sym_rttiAttributes]; SGroup 10730 1 [aux_sym_rttiAttributes_repeat2];
     SGroup 13987 1 [aux_sym_genericArg_repeat1]; SGroup 14434 1 [sym_declVariant];
     SGroup 14638 1 [sym__declClass]; AGroup 3 2 syms_5; AGroup 13381 2 syms_65;
     AGroup 13393 2 syms_66; SGroup 5685 2 syms_68; SGroup 10490 3 syms_69;
     AGroup 13383 4 syms_3; AGroup 13371 6 syms_70; SGroup 6150 6 syms_71]);
   (258127, 4, [AGroup 5 1 [sym_ppDirective]; AGroup 3 2 syms_5; AGroup 10868 5 syms_150;
     AGroup 10866 41 syms_166]);
   (258185, 4, [AGroup 5 1 [sym_ppDirective]; AGroup 3 2 syms_5; AGroup 10872 5 syms_150;
     AGroup 10870 41 syms_166]);
   (258243, 30, [AGroup 5 1 [sym_ppDirective]; AGroup 13347 1 [anon_sym_LBRACK];
     AGroup 13351 1 [aux_sym_ppUsesBlock_token1]; AGroup 13365 1 [sym_identifier];
     AGroup 13367 1 [sym_kGeneric]; AGroup 13369 1 [sym_kOperator]; AGroup 13373 1 [sym_kStrict];
     AGroup 13377 1 [sym_kCase]; AGroup 13379 1 [sym_kClass]; AGroup 13391 1 [sym_kProperty];
     AGroup 13395 1 [sym_kType]; AGroup 18697 1 [sym_kEnd]; SGroup 2 1 [sym__ppIf];
     SGroup 6354 1 [sym__visibility]; SGroup 9779 1 [sym_ppBlock];
     SGroup 9835 1 [sym__declOperator]; SGroup 10247 1 [sym__declProc];
     SGroup 10617 1 [sym_rttiAttributes]; SGroup 10730 1 [aux_sym_rttiAttributes_repeat2];
     SGroup 13987 1 [aux_sym_genericArg_repeat1]; SGroup 14434 1 [sym_declVariant];
     SGroup 14831 1 [sym__declClass]; AGroup 3 2 syms_5; AGroup 13381 2 syms_65;
     AGroup 13393 2 syms_66; SGroup 5685 2 syms_68; SGroup 10490 3 syms_69;
     AGroup 13383 4 syms_3; AGroup 13371 6 syms_70; SGroup 6150 6 syms_71]);
   (258353, 4, [AGroup 5 1 [sym_ppDirective]; AGroup 3 2 syms_5; AGroup 10876 5 syms_150;
     AGroup 10874 41 syms_166]);
   (258411, 5, [AGroup 5 1 [sym_ppDirective]; AGroup 3 2 syms_5; AGroup 15439 4 syms_25;
     AGroup 15403 18 syms_36; AGroup 15437 24 syms_182]);
   (258471, 4, [AGroup 5 1 [sym_ppDirective]; AGroup 3 2 syms_5; AGroup 10884 5 syms_150;
     AGroup 10882 41 syms_166]);
   (258529, 4, [AGroup 5 1 [sym_ppDirective]; AGroup 3 2 syms_5; AGroup 10708 5 syms_150;
     AGroup 10706 41 syms_166]);
   (258587, 5, [AGroup 5 1 [sym_ppDirective]; AGroup 3 2 syms_5; AGroup 15488 4 syms_25;
     AGroup 15403 18 syms_36; AGroup 15486 24 syms_182]);
   (258647, 4, [AGroup 5 1 [sym_ppDirective]; AGroup 3 2 syms_5; AGroup 10888 5 syms_150;
     AGroup 10886 41 syms_166]);
   (258705, 4, [AGroup 5 1 [sym_ppDirective]; AGroup 3 2 syms_5; AGroup 10892 5 syms_150;
     AGroup 10890 41 syms_166]);
   (258763, 4, [AGroup 5 1 [sym_ppDirective]; AGroup 3 2 syms_5; AGroup 15295 4 syms_25;
     AGroup 15293 42 syms_185]);
   (258821, 5, [AGroup 5 1 [sym_ppDirective]; AGroup 18699 1 [sym_kElse]; AGroup 3 2 syms_5;
     AGroup 10722 5 syms_150; AGroup 10720 40 syms_172]);
   (258881, 4, [AGroup 5 1 [sym_ppDirective]; AGroup 3 2 syms_5; AGroup 10896 5 syms_150;
     AGroup 10894 41 syms_166]);
   (258939, 4, [AGroup 5 1 [sym_ppDirective]; AGroup 3 2 syms_5; AGroup 15355 4 syms_25;
     AGroup 15353 42 syms_185]);
   (258997, 6, [AGroup 5 1 [sym_ppDirective]; AGroup 3 2 syms_5; AGroup 18705 2 syms_186;
     SGroup 5625 2 syms_187; AGroup 18703 5 syms_150; AGroup 18701 37 syms_188]);
   (259059, 4, [AGroup 5 1 [sym_ppDirective]; AGroup 3 2 syms_5; AGroup 10900 5 syms_150;
     AGroup 10898 41 syms_166]);
   (259117, 4, [AGroup 5 1 [sym_ppDirective]; AGroup 3 2 syms_5; AGroup 10904 5 syms_150;
     AGroup 10902 41 syms_166]);
   (259175, 30, [AGroup 5 1 [sym_ppDirective]; AGroup 13347 1 [anon_sym_LBRACK];
     AGroup 13351 1 [aux_sym_ppUsesBlock_token1]; AGroup 13365 1 [sym_identifier];
     AGroup 13367 1 [sym_kGeneric]; AGroup 13369 1 [sym_kOperator]; AGroup 13373 1 [sym_kStrict];
     AGroup 13377 1 [sym_kCase]; AGroup 13379 1 [sym_kClass]; AGroup 13391 1 [sym_kProperty];
     AGroup 13395 1 [sym_kType]; AGroup 18708 1 [sym_kEnd]; SGroup 2 1 [sym__ppIf];
     SGroup 6354 1 [sym__visibility]; SGroup 9779 1 [sym_ppBlock];
     SGroup 9835 1 [sym__declOperator]; SGroup 10247 1 [sym__declProc];
     SGroup 10617 1 [sym_rttiAttributes]; SGroup 10730 1 [aux_sym_rttiAttributes_repeat2];
     SGroup 11071 1 [sym__declClass]; SGroup 13987 1 [aux_sym_genericArg_repeat1];
     SGroup 15537 1 [sym_declVariant]; AGroup 3 2 syms_5; AGroup 13381 2 syms_65;
     AGroup 13393 2 syms_66; SGroup 5770 2 syms_68; SGroup 10491 3 syms_69;
     AGroup 13383 4 syms_3; AGroup 13371 6 syms_70; SGroup 6191 6 syms_71]);
   (259285, 4, [AGroup 5 1 [sym_ppDirective]; AGroup 3 2 syms_5; AGroup 10908 5 syms_150;
     AGroup 10906 41 syms_166]);
   (259343, 4, [AGroup 5 1 [sym_ppDirective]; AGroup 3 2 syms_5; AGroup 15295 4 syms_25;
     AGroup 15293 42 syms_189]);
   (259401, 5, [AGroup 5 1 [sym_ppDirective]; AGroup 3 2 syms_5; AGroup 15473 4 syms_25;
     AGroup 15403 18 syms_36; AGroup 15471 24 syms_174]);
   (259461, 4, [AGroup 5 1 [sym_ppDirective]; AGroup 3 2 syms_5; AGroup 10912 5 syms_150;
     AGroup 10910 41 syms_166]);
   (259519, 4, [AGroup 5 1 [sym_ppDirective]; AGroup 3 2 syms_5; AGroup 10840 5 syms_150;
     AGroup 10838 41 syms_166]);
   (259577, 5, [AGroup 5 1 [sym_ppDirective]; AGroup 3 2 syms_5; AGroup 15488 4 syms_25;
     AGroup 15403 18 syms_36; AGroup 15486 24 syms_174]);
   (259637, 4, [AGroup 5 1 [sym_ppDirective]; AGroup 3 2 syms_5; AGroup 10916 5 syms_150;
     AGroup 10914 41 syms_166]);
   (259695, 9, [AGroup 15337 1 [sym_kDispId]; AGroup 15339 1 [sym_kPublic]; AGroup 15341 1 [sym_kMessage];
     AGroup 15343 1 [sym_kDeprecated]; AGroup 15345 1 [sym_kExport]; AGroup 15347 1 [sym_kAlias];
     SGroup 13239 1 [sym_procAttribute]; AGroup 3 3 syms_1; AGroup 15335 39 syms_33]);
   (259763, 4, [AGroup 5 1 [sym_ppDirective]; AGroup 3 2 syms_5; AGroup 10768 5 syms_150;
     AGroup 10766 41 syms_166]);
   (259821, 4, [AGroup 5 1 [sym_ppDirective]; AGroup 3 2 syms_5; AGroup 10848 5 syms_150;
     AGroup 10846 41 syms_166]);
   (259879, 4, [AGroup 5 1 [sym_ppDirective]; AGroup 3 2 syms_5; AGroup 10828 5 syms_150;
     AGroup 10826 41 syms_166]);
   (259937, 4, [AGroup 5 1 [sym_ppDirective]; AGroup 3 2 syms_5; AGroup 10880 5 syms_150;
     AGroup 10878 41 syms_166]);
   (259995, 4, [AGroup 5 1 [sym_ppDirective]; AGroup 3 2 syms_5; AGroup 15355 4 syms_25;
     AGroup 15353 42 syms_189]);
   (260053, 4, [AGroup 5 1 [sym_ppDirective]; AGroup 3 2 syms_5; AGroup 10712 5 syms_150;
     AGroup 10710 41 syms_166]);
   (260111, 4, [AGroup 5 1 [sym_ppDirective]; AGroup 3 2 syms_5; AGroup 10734 5 syms_150;
     AGroup 10732 41 syms_166]);
   (260169, 4, [AGroup 5 1 [sym_ppDirective]; AGroup 3 2 syms_5; AGroup 10734 5 syms_150;
     AGroup 10732 41 syms_166]);
   (260227, 4, [AGroup 5 1 [sym_ppDirective]; AGroup 3 2 syms_5; AGroup 10742 5 syms_150;
     AGroup 10740 41 syms_166]);
   (260285, 4, [AGroup 5 1 [sym_ppDirective]; AGroup 3 2 syms_5; AGroup 10752 5 syms_150;
     AGroup 10750 41 syms_166]);
   (260343, 4, [AGroup 5 1 [sym_ppDirective]; AGroup 3 2 syms_5; AGroup 10762 5 syms_150;
     AGroup 10760 41 syms_166]);
   (260401, 4, [AGroup 5 1 [sym_ppDirective]; AGroup 3 2 syms_5; AGroup 10776 5 syms_150;
     AGroup 10774 41 syms_166]);
   (260459, 4, [AGroup 5 1 [sym_ppDirective]; AGroup 3 2 syms_5; AGroup 10844 5 syms_150;
     AGroup 10842 41 syms_166]);
   (260517, 4, [AGroup 5 1 [sym_ppDirective]; AGroup 3 2 syms_5; AGroup 10780 5 syms_150;
     AGroup 10778 41 syms_166]);
   (260575, 4, [AGroup 5 1 [sym_ppDirective]; AGroup 3 2 syms_5; AGroup 10786 5 syms_150;
     AGroup 10784 41 syms_166]);
   (260633, 5, [AGroup 5 1 [sym_ppDirective]; AGroup 3 2 syms_5; AGroup 15496 4 syms_25;
     AGroup 15403 18 syms_36; AGroup 15494 24 syms_182]);
   (260693, 4, [AGroup 5 1 [sym_ppDirective]; AGroup 3 2 syms_5; AGroup 10794 5 syms_150;
     AGroup 10792 41 syms_166]);
   (260751, 4, [AGroup 5 1 [sym_ppDirective]; AGroup 3 2 syms_5; AGroup 10804 5 syms_150;
     AGroup 10802 41 syms_166]);
   (260809, 5, [AGroup 5 1 [sym_ppDirective]; AGroup 3 2 syms_5; AGroup 15473 4 syms_25;
     AGroup 15403 18 syms_36; AGroup 15471 24 syms_175]);
   (260869, 4, [AGroup 5 1 [sym_ppDirective]; AGroup 3 2 syms_5; AGroup 10808 5 syms_150;
     AGroup 10806 41 syms_166]);
   (260927, 4, [AGroup 5 1 [sym_ppDirective]; AGroup 3 2 syms_5; AGroup 10812 5 syms_150;
     AGroup 10810 41 syms_166]);
   (260985, 30, [AGroup 5 1 [sym_ppDirective]; AGroup 13347 1 [anon_sym_LBRACK];
     AGroup 13351 1 [aux_sym_ppUsesBlock_token1]; AGroup 13365 1 [sym_identifier];
     AGroup 13367 1 [sym_kGeneric]; AGroup 13369 1 [sym_kOperator]; AGroup 13373 1 [sym_kStrict];
     AGroup 13377 1 [sym_kCase]; AGroup 13379 1 [sym_kClass]; AGroup 13391 1 [sym_kProperty];
     AGroup 13395 1 [sym_kType]; AGroup 18710 1 [sym_kEnd]; SGroup 2 1 [sym__ppIf];
     SGroup 6354 1 [sym__visibility]; SGroup 9779 1 [sym_ppBlock];
     SGroup 9835 1 [sym__declOperator]; SGroup 10247 1 [sym__declProc];
     SGroup 10617 1 [sym_rttiAttributes]; SGroup 10730 1 [aux_sym_rttiAttributes_repeat2];
     SGroup 11224 1 [sym__declClass]; SGroup 13987 1 [aux_sym_genericArg_repeat1];
     SGroup 15537 1 [sym_declVariant]; AGroup 3 2 syms_5; AGroup 13381 2 syms_65;
     AGroup 13393 2 syms_66; SGroup 5770 2 syms_68; SGroup 10491 3 syms_69;
     AGroup 13383 4 syms_3; AGroup 13371 6 syms_70; SGroup 6191 6 syms_71])
  ].

(** States 5659 to 5758. *)
Definition small_runs_5659 : list small_run :=
  [
   (261095, 5, [AGroup 5 1 [sym_ppDirective]; AGroup 3 2 syms_5; AGroup 15473 4 syms_25;
     AGroup 15403 18 syms_36; AGroup 15471 24 syms_170]);
   (261155, 30, [AGroup 5 1 [sym_ppDirective]; AGroup 13347 1 [anon_sym_LBRACK];
     AGroup 13351 1 [aux_sym_ppUsesBlock_token1]; AGroup 13365 1 [sym_identifier];
     AGroup 13367 1 [sym_kGeneric]; AGroup 13369 1 [sym_kOperator]; AGroup 13373 1 [sym_kStrict];
     AGroup 13377 1 [sym_kCase]; AGroup 13379 1 [sym_kClass]; AGroup 13391 1 [sym_kProperty];
     AGroup 13395 1 [sym_kType]; AGroup 18712 1 [sym_kEnd]; SGroup 2 1 [sym__ppIf];
     SGroup 6354 1 [sym__visibility]; SGroup 9779 1 [sym_ppBlock];
     SGroup 9835 1 [sym__declOperator]; SGroup 10247 1 [sym__declProc];
     SGroup 10617 1 [sym_rttiAttributes]; SGroup 10730 1 [aux_sym_rttiAttributes_repeat2];
     SGroup 12969 1 [sym__declClass]; SGroup 13987 1 [aux_sym_genericArg_repeat1];
     SGroup 14196 1 [sym_declVariant]; AGroup 3 2 syms_5; AGroup 13381 2 syms_65;
     AGroup 13393 2 syms_66; SGroup 5775 2 syms_68; SGroup 10489 3 syms_69;
     AGroup 13383 4 syms_3; AGroup 13371 6 syms_70; SGroup 6293 6 syms_71]);
   (261265, 5, [AGroup 5 1 [sym_ppDirective]; AGroup 3 2 syms_5; AGroup 15496 4 syms_25;
     AGroup 15403 18 syms_36; AGroup 15494 24 syms_174]);
   (261325, 5, [AGroup 5 1 [sym_ppDirective]; AGroup 3 2 syms_5; AGroup 15473 4 syms_25;
     AGroup 15403 18 syms_36; AGroup 15471 24 syms_184]);
   (261385, 5, [AGroup 5 1 [sym_ppDirective]; AGroup 3 2 syms_5; AGroup 15504 4 syms_25;
     AGroup 15403 18 syms_36; AGroup 15502 24 syms_167]);
   (261445, 5, [AGroup 5 1 [sym_ppDirective]; AGroup 3 2 syms_5; AGroup 15484 4 syms_25;
     AGroup 15403 18 syms_36; AGroup 15482 24 syms_167]);
   (261505, 2, [AGroup 3 3 syms_1; AGroup 18681 46 syms_141]);
   (261559, 4, [AGroup 5 1 [sym_ppDirective]; AGroup 3 2 syms_5; AGroup 16467 4 syms_25;
     AGroup 16465 42 syms_190]);
   (261617, 5, [AGroup 5 1 [sym_ppDirective]; AGroup 3 2 syms_5; AGroup 15496 4 syms_25;
     AGroup 15403 18 syms_36; AGroup 15494 24 syms_176]);
   (261677, 5, [AGroup 5 1 [sym_ppDirective]; AGroup 3 2 syms_5; AGroup 15504 4 syms_25;
     AGroup 15403 18 syms_36; AGroup 15502 24 syms_184]);
   (261737, 5, [AGroup 5 1 [sym_ppDirective]; AGroup 3 2 syms_5; AGroup 15484 4 syms_25;
     AGroup 15403 18 syms_36; AGroup 15482 24 syms_184]);
   (261797, 2, [AGroup 3 3 syms_1; AGroup 18714 46 syms_141]);
   (261851, 5, [AGroup 5 1 [sym_ppDirective]; AGroup 3 2 syms_5; AGroup 15492 4 syms_25;
     AGroup 15403 18 syms_36; AGroup 15490 24 syms_184]);
   (261911, 5, [AGroup 5 1 [sym_ppDirective]; AGroup 3 2 syms_5; AGroup 15401 4 syms_25;
     AGroup 15403 18 syms_36; AGroup 15399 24 syms_184]);
   (261971, 30, [AGroup 5 1 [sym_ppDirective]; AGroup 13347 1 [anon_sym_LBRACK];
     AGroup 13351 1 [aux_sym_ppUsesBlock_token1]; AGroup 13365 1 [sym_identifier];
     AGroup 13367 1 [sym_kGeneric]; AGroup 13369 1 [sym_kOperator]; AGroup 13373 1 [sym_kStrict];
     AGroup 13377 1 [sym_kCase]; AGroup 13379 1 [sym_kClass]; AGroup 13391 1 [sym_kProperty];
     AGroup 13395 1 [sym_kType]; AGroup 18716 1 [sym_kEnd]; SGroup 2 1 [sym__ppIf];
     SGroup 6354 1 [sym__visibility]; SGroup 9779 1 [sym_ppBlock];
     SGroup 9835 1 [sym__declOperator]; SGroup 10247 1 [sym__declProc];
     SGroup 10617 1 [sym_rttiAttributes]; SGroup 10730 1 [aux_sym_rttiAttributes_repeat2];
     SGroup 13987 1 [aux_sym_genericArg_repeat1]; SGroup 14434 1 [sym_declVariant];
     SGroup 15119 1 [sym__declClass]; AGroup 3 2 syms_5; AGroup 13381 2 syms_65;
     AGroup 13393 2 syms_66; SGroup 5685 2 syms_68; SGroup 10490 3 syms_69;
     AGroup 13383 4 syms_3; AGroup 13371 6 syms_70; SGroup 6150 6 syms_71]);
   (262081, 5, [AGroup 5 1 [sym_ppDirective]; AGroup 3 2 syms_5; AGroup 15439 4 syms_25;
     AGroup 15403 18 syms_36; AGroup 15437 24 syms_184]);
   (262141, 5, [AGroup 5 1 [sym_ppDirective]; AGroup 3 2 syms_5; AGroup 15488 4 syms_25;
     AGroup 15403 18 syms_36; AGroup 15486 24 syms_184]);
   (262201, 4, [AGroup 5 1 [sym_ppDirective]; AGroup 3 2 syms_5; AGroup 15295 4 syms_25;
     AGroup 15293 42 syms_171]);
   (262259, 4, [AGroup 5 1 [sym_ppDirective]; AGroup 3 2 syms_5; AGroup 15295 4 syms_25;
     AGroup 15293 42 syms_168]);
   (262317, 5, [AGroup 5 1 [sym_ppDirective]; AGroup 3 2 syms_5; AGroup 15504 4 syms_25;
     AGroup 15403 18 syms_36; AGroup 15502 24 syms_174]);
   (262377, 4, [AGroup 5 1 [sym_ppDirective]; AGroup 3 2 syms_5; AGroup 10864 5 syms_150;
     AGroup 10862 41 syms_166]);
   (262435, 4, [AGroup 5 1 [sym_ppDirective]; AGroup 3 2 syms_5; AGroup 10708 5 syms_150;
     AGroup 10706 40 syms_172]);
   (262492, 4, [AGroup 5 1 [sym_ppDirective]; AGroup 3 2 syms_5; AGroup 10872 5 syms_150;
     AGroup 10870 40 syms_172]);
   (262549, 5, [AGroup 5 1 [sym_ppDirective]; AGroup 3 2 syms_5; AGroup 15496 4 syms_25;
     AGroup 15403 18 syms_36; AGroup 15494 23 syms_191]);
   (262608, 5, [AGroup 5 1 [sym_ppDirective]; AGroup 3 2 syms_5; AGroup 18720 5 syms_150;
     AGroup 18722 5 syms_60; AGroup 18718 35 syms_192]);
   (262667, 5, [AGroup 5 1 [sym_ppDirective]; AGroup 3 2 syms_5; AGroup 15473 4 syms_25;
     AGroup 15403 18 syms_36; AGroup 15471 23 syms_193]);
   (262726, 29, [AGroup 5 1 [sym_ppDirective]; AGroup 13347 1 [anon_sym_LBRACK];
     AGroup 13351 1 [aux_sym_ppUsesBlock_token1]; AGroup 13365 1 [sym_identifier];
     AGroup 13367 1 [sym_kGeneric]; AGroup 13369 1 [sym_kOperator]; AGroup 13373 1 [sym_kStrict];
     AGroup 13377 1 [sym_kCase]; AGroup 13379 1 [sym_kClass]; AGroup 13391 1 [sym_kProperty];
     AGroup 13395 1 [sym_kType]; AGroup 18724 1 [sym_kEnd]; SGroup 2 1 [sym__ppIf];
     SGroup 6354 1 [sym__visibility]; SGroup 9779 1 [sym_ppBlock];
     SGroup 9835 1 [sym__declOperator]; SGroup 10247 1 [sym__declProc];
     SGroup 10617 1 [sym_rttiAttributes]; SGroup 10730 1 [aux_sym_rttiAttributes_repeat2];
     SGroup 13987 1 [aux_sym_genericArg_repeat1]; SGroup 14840 1 [sym_declVariant];
     AGroup 3 2 syms_5; AGroup 13381 2 syms_65; AGroup 13393 2 syms_66; SGroup 7758 2 syms_68;
     SGroup 10512 3 syms_69; AGroup 13383 4 syms_3; AGroup 13371 6 syms_70; SGroup 6317 6 syms_71]);
   (262833, 4, [AGroup 5 1 [sym_ppDirective]; AGroup 3 2 syms_5; AGroup 10876 5 syms_150;
     AGroup 10874 40 syms_172]);
   (262890, 4, [AGroup 5 1 [sym_ppDirective]; AGroup 3 2 syms_5; AGroup 15355 4 syms_25;
     AGroup 15353 41 syms_194]);
   (262947, 4, [AGroup 5 1 [sym_ppDirective]; AGroup 3 2 syms_5; AGroup 15295 4 syms_25;
     AGroup 15293 41 syms_195]);
   (263004, 29, [AGroup 5 1 [sym_ppDirective]; AGroup 13347 1 [anon_sym_LBRACK];
     AGroup 13351 1 [aux_sym_ppUsesBlock_token1]; AGroup 13365 1 [sym_identifier];
     AGroup 13367 1 [sym_kGeneric]; AGroup 13369 1 [sym_kOperator]; AGroup 13373 1 [sym_kStrict];
     AGroup 13377 1 [sym_kCase]; AGroup 13379 1 [sym_kClass]; AGroup 13391 1 [sym_kProperty];
     AGroup 13395 1 [sym_kType]; AGroup 18726 1 [sym_kEnd]; SGroup 2 1 [sym__ppIf];
     SGroup 6354 1 [sym__visibility]; SGroup 9779 1 [sym_ppBlock];
     SGroup 9835 1 [sym__declOperator]; SGroup 10247 1 [sym__declProc];
     SGroup 10617 1 [sym_rttiAttributes]; SGroup 10730 1 [aux_sym_rttiAttributes_repeat2];
     SGroup 13987 1 [aux_sym_genericArg_repeat1]; SGroup 14459 1 [sym_declVariant];
     AGroup 3 2 syms_5; AGroup 13381 2 syms_65; AGroup 13393 2 syms_66; SGroup 7758 2 syms_68;
     SGroup 10513 3 syms_69; AGroup 13383 4 syms_3; AGroup 13371 6 syms_70; SGroup 6336 6 syms_71]);
   (263111, 5, [AGroup 5 1 [sym_ppDirective]; AGroup 3 2 syms_5; AGroup 15504 4 syms_25;
     AGroup 15403 18 syms_36; AGroup 15502 23 syms_196]);
   (263170, 5, [AGroup 5 1 [sym_ppDirective]; AGroup 3 2 syms_5; AGroup 15504 4 syms_25;
     AGroup 15403 18 syms_36; AGroup 15502 23 syms_193]);
   (263229, 4, [AGroup 5 1 [sym_ppDirective]; AGroup 3 2 syms_5; AGroup 10916 5 syms_150;
     AGroup 10914 40 syms_172]);
   (263286, 5, [AGroup 5 1 [sym_ppDirective]; AGroup 3 2 syms_5; AGroup 15484 4 syms_25;
     AGroup 15403 18 syms_36; AGroup 15482 23 syms_196]);
   (263345, 5, [AGroup 5 1 [sym_ppDirective]; AGroup 3 2 syms_5; AGroup 15484 4 syms_25;
     AGroup 15403 18 syms_36; AGroup 15482 23 syms_193]);
   (263404, 4, [AGroup 5 1 [sym_ppDirective]; AGroup 3 2 syms_5; AGroup 10742 5 syms_150;
     AGroup 10740 40 syms_172]);
   (263461, 4, [AGroup 5 1 [sym_ppDirective]; AGroup 3 2 syms_5; AGroup 10752 5 syms_150;
     AGroup 10750 40 syms_172]);
   (263518, 4, [AGroup 5 1 [sym_ppDirective]; AGroup 3 2 syms_5; AGroup 9812 5 syms_150;
     AGroup 9810 40 syms_172]);
   (263575, 4, [AGroup 5 1 [sym_ppDirective]; AGroup 3 2 syms_5; AGroup 10762 5 syms_150;
     AGroup 10760 40 syms_172]);
   (263632, 5, [AGroup 5 1 [sym_ppDirective]; AGroup 3 2 syms_5; AGroup 15504 4 syms_25;
     AGroup 15403 18 syms_36; AGroup 15502 23 syms_197]);
   (263691, 5, [AGroup 5 1 [sym_ppDirective]; AGroup 3 2 syms_5; AGroup 15492 4 syms_25;
     AGroup 15403 18 syms_36; AGroup 15490 23 syms_193]);
   (263750, 5, [AGroup 5 1 [sym_ppDirective]; AGroup 3 2 syms_5; AGroup 15401 4 syms_25;
     AGroup 15403 18 syms_36; AGroup 15399 23 syms_193]);
   (263809, 5, [AGroup 5 1 [sym_ppDirective]; AGroup 3 2 syms_5; AGroup 15504 4 syms_25;
     AGroup 15403 18 syms_36; AGroup 15502 23 syms_198]);
   (263868, 5, [AGroup 5 1 [sym_ppDirective]; AGroup 3 2 syms_5; AGroup 15484 4 syms_25;
     AGroup 15403 18 syms_36; AGroup 15482 23 syms_197]);
   (263927, 4, [AGroup 5 1 [sym_ppDirective]; AGroup 3 2 syms_5; AGroup 10776 5 syms_150;
     AGroup 10774 40 syms_172]);
   (263984, 4, [AGroup 5 1 [sym_ppDirective]; AGroup 3 2 syms_5; AGroup 10780 5 syms_150;
     AGroup 10778 40 syms_172]);
   (264041, 4, [AGroup 5 1 [sym_ppDirective]; AGroup 3 2 syms_5; AGroup 10786 5 syms_150;
     AGroup 10784 40 syms_172]);
   (264098, 5, [AGroup 5 1 [sym_ppDirective]; AGroup 3 2 syms_5; AGroup 15484 4 syms_25;
     AGroup 15403 18 syms_36; AGroup 15482 23 syms_198]);
   (264157, 6, [AGroup 5 1 [sym_ppDirective]; AGroup 3 2 syms_5; AGroup 18728 2 syms_186;
     AGroup 18720 5 syms_150; AGroup 18731 5 syms_60; AGroup 18718 33 syms_199]);
   (264218, 4, [AGroup 5 1 [sym_ppDirective]; AGroup 3 2 syms_5; AGroup 10884 5 syms_150;
     AGroup 10882 40 syms_172]);
   (264275, 5, [AGroup 5 1 [sym_ppDirective]; AGroup 3 2 syms_5; AGroup 15439 4 syms_25;
     AGroup 15403 18 syms_36; AGroup 15437 23 syms_193]);
   (264334, 5, [AGroup 5 1 [sym_ppDirective]; AGroup 3 2 syms_5; AGroup 15488 4 syms_25;
     AGroup 15403 18 syms_36; AGroup 15486 23 syms_193]);
   (264393, 5, [AGroup 5 1 [sym_ppDirective]; AGroup 3 2 syms_5; AGroup 15492 4 syms_25;
     AGroup 15403 18 syms_36; AGroup 15490 23 syms_196]);
   (264452, 5, [AGroup 5 1 [sym_ppDirective]; AGroup 3 2 syms_5; AGroup 15401 4 syms_25;
     AGroup 15403 18 syms_36; AGroup 15399 23 syms_196]);
   (264511, 4, [AGroup 5 1 [sym_ppDirective]; AGroup 3 2 syms_5; AGroup 10768 5 syms_150;
     AGroup 10766 40 syms_172]);
   (264568, 5, [AGroup 5 1 [sym_ppDirective]; AGroup 3 2 syms_5; AGroup 15496 4 syms_25;
     AGroup 15403 18 syms_36; AGroup 15494 23 syms_193]);
   (264627, 4, [AGroup 5 1 [sym_ppDirective]; AGroup 3 2 syms_5; AGroup 15295 4 syms_25;
     AGroup 15293 41 syms_200]);
   (264684, 4, [AGroup 5 1 [sym_ppDirective]; AGroup 3 2 syms_5; AGroup 10808 5 syms_150;
     AGroup 10806 40 syms_172]);
   (264741, 4, [AGroup 5 1 [sym_ppDirective]; AGroup 3 2 syms_5; AGroup 10860 5 syms_150;
     AGroup 10858 40 syms_172]);
   (264798, 4, [AGroup 5 1 [sym_ppDirective]; AGroup 3 2 syms_5; AGroup 15355 4 syms_25;
     AGroup 15353 41 syms_195]);
   (264855, 4, [AGroup 5 1 [sym_ppDirective]; AGroup 3 2 syms_5; AGroup 15355 4 syms_25;
     AGroup 15353 41 syms_200]);
   (264912, 5, [AGroup 5 1 [sym_ppDirective]; AGroup 3 2 syms_5; AGroup 15473 4 syms_25;
     AGroup 15403 18 syms_36; AGroup 15471 23 syms_198]);
   (264971, 4, [AGroup 5 1 [sym_ppDirective]; AGroup 3 2 syms_5; AGroup 10812 5 syms_150;
     AGroup 10810 40 syms_172]);
   (265028, 2, [AGroup 3 3 syms_1; AGroup 18733 45 syms_201]);
   (265081, 4, [AGroup 5 1 [sym_ppDirective]; AGroup 3 2 syms_5; AGroup 15295 4 syms_25;
     AGroup 15293 41 syms_202]);
   (265138, 4, [AGroup 5 1 [sym_ppDirective]; AGroup 3 2 syms_5; AGroup 10820 5 syms_150;
     AGroup 10818 40 syms_172]);
   (265195, 5, [AGroup 5 1 [sym_ppDirective]; AGroup 3 2 syms_5; AGroup 15473 4 syms_25;
     AGroup 15403 18 syms_36; AGroup 15471 23 syms_191]);
   (265254, 5, [AGroup 5 1 [sym_ppDirective]; AGroup 3 2 syms_5; AGroup 15439 4 syms_25;
     AGroup 15403 18 syms_36; AGroup 15437 23 syms_196]);
   (265313, 4, [AGroup 5 1 [sym_ppDirective]; AGroup 3 2 syms_5; AGroup 15295 4 syms_25;
     AGroup 15293 41 syms_203]);
   (265370, 4, [AGroup 5 1 [sym_ppDirective]; AGroup 3 2 syms_5; AGroup 15355 4 syms_25;
     AGroup 15353 41 syms_202]);
   (265427, 5, [AGroup 5 1 [sym_ppDirective]; AGroup 3 2 syms_5; AGroup 15488 4 syms_25;
     AGroup 15403 18 syms_36; AGroup 15486 23 syms_196]);
   (265486, 4, [AGroup 5 1 [sym_ppDirective]; AGroup 3 2 syms_5; AGroup 10888 5 syms_150;
     AGroup 10886 40 syms_172]);
   (265543, 4, [AGroup 5 1 [sym_ppDirective]; AGroup 3 2 syms_5; AGroup 10892 5 syms_150;
     AGroup 10890 40 syms_172]);
   (265600, 5, [AGroup 5 1 [sym_ppDirective]; AGroup 3 2 syms_5; AGroup 15492 4 syms_25;
     AGroup 15403 18 syms_36; AGroup 15490 23 syms_198]);
   (265659, 4, [AGroup 5 1 [sym_ppDirective]; AGroup 3 2 syms_5; AGroup 10896 5 syms_150;
     AGroup 10894 40 syms_172]);
   (265716, 4, [AGroup 5 1 [sym_ppDirective]; AGroup 3 2 syms_5; AGroup 10900 5 syms_150;
     AGroup 10898 40 syms_172]);
   (265773, 4, [AGroup 5 1 [sym_ppDirective]; AGroup 3 2 syms_5; AGroup 10840 5 syms_150;
     AGroup 10838 40 syms_172]);
   (265830, 5, [AGroup 5 1 [sym_ppDirective]; AGroup 3 2 syms_5; AGroup 15401 4 syms_25;
     AGroup 15403 18 syms_36; AGroup 15399 23 syms_198]);
   (265889, 4, [AGroup 5 1 [sym_ppDirective]; AGroup 3 2 syms_5; AGroup 10904 5 syms_150;
     AGroup 10902 40 syms_172]);
   (265946, 5, [AGroup 5 1 [sym_ppDirective]; AGroup 3 2 syms_5; AGroup 15496 4 syms_25;
     AGroup 15403 18 syms_36; AGroup 15494 23 syms_196]);
   (266005, 4, [AGroup 5 1 [sym_ppDirective]; AGroup 3 2 syms_5; AGroup 10844 5 syms_150;
     AGroup 10842 40 syms_172]);
   (266062, 5, [AGroup 5 1 [sym_ppDirective]; AGroup 3 2 syms_5; AGroup 15496 4 syms_25;
     AGroup 15403 18 syms_36; AGroup 15494 23 syms_204]);
   (266121, 4, [AGroup 5 1 [sym_ppDirective]; AGroup 3 2 syms_5; AGroup 18737 5 syms_150;
     AGroup 18735 40 syms_172]);
   (266178, 5, [AGroup 5 1 [sym_ppDirective]; AGroup 3 2 syms_5; AGroup 15484 4 syms_25;
     AGroup 15403 18 syms_36; AGroup 15482 23 syms_204]);
   (266237, 4, [AGroup 5 1 [sym_ppDirective]; AGroup 3 2 syms_5; AGroup 10848 5 syms_150;
     AGroup 10846 40 syms_172]);
   (266294, 5, [AGroup 5 1 [sym_ppDirective]; AGroup 3 2 syms_5; AGroup 15439 4 syms_25;
     AGroup 15403 18 syms_36; AGroup 15437 23 syms_198]);
   (266353, 5, [AGroup 5 1 [sym_ppDirective]; AGroup 3 2 syms_5; AGroup 15492 4 syms_25;
     AGroup 15403 18 syms_36; AGroup 15490 23 syms_197]);
   (266412, 5, [AGroup 5 1 [sym_ppDirective]; AGroup 3 2 syms_5; AGroup 15401 4 syms_25;
     AGroup 15403 18 syms_36; AGroup 15399 23 syms_204]);
   (266471, 5, [AGroup 5 1 [sym_ppDirective]; AGroup 3 2 syms_5; AGroup 15488 4 syms_25;
     AGroup 15403 18 syms_36; AGroup 15486 23 syms_197]);
   (266530, 5, [AGroup 5 1 [sym_ppDirective]; AGroup 3 2 syms_5; AGroup 15488 4 syms_25;
     AGroup 15403 18 syms_36; AGroup 15486 23 syms_198]);
   (266589, 4, [AGroup 5 1 [sym_ppDirective]; AGroup 3 2 syms_5; AGroup 10828 5 syms_150;
     AGroup 10826 40 syms_172]);
   (266646, 4, [AGroup 5 1 [sym_ppDirective]; AGroup 3 2 syms_5; AGroup 10880 5 syms_150;
     AGroup 10878 40 syms_172]);
   (266703, 5, [AGroup 5 1 [sym_ppDirective]; AGroup 3 2 syms_5; AGroup 15496 4 syms_25;
     AGroup 15403 18 syms_36; AGroup 15494 23 syms_205]);
   (266762, 5, [AGroup 5 1 [sym_ppDirective]; AGroup 3 2 syms_5; AGroup 15473 4 syms_25;
     AGroup 15403 18 syms_36; AGroup 15471 23 syms_196]);
   (266821, 4, [AGroup 5 1 [sym_ppDirective]; AGroup 3 2 syms_5; AGroup 15295 4 syms_25;
     AGroup 15293 41 syms_206]);
   (266878, 5, [AGroup 5 1 [sym_ppDirective]; AGroup 3 2 syms_5; AGroup 15492 4 syms_25;
     AGroup 15403 18 syms_36; AGroup 15490 23 syms_204]);
   (266937, 4, [AGroup 5 1 [sym_ppDirective]; AGroup 3 2 syms_5; AGroup 15355 4 syms_25;
     AGroup 15353 41 syms_203]);
   (266994, 5, [AGroup 5 1 [sym_ppDirective]; AGroup 3 2 syms_5; AGroup 15504 4 syms_25;
     AGroup 15403 18 syms_36; AGroup 15502 23 syms_191]);
   (267053, 5, [AGroup 5 1 [sym_ppDirective]; AGroup 3 2 syms_5; AGroup 15401 4 syms_25;
     AGroup 15403 18 syms_36; AGroup 15399 23 syms_197])
  ].

(** States 5759 to 5858. *)
Definition small_runs_5759 : list small_run :=
  [
   (267112, 5, [AGroup 5 1 [sym_ppDirective]; AGroup 3 2 syms_5; AGroup 15484 4 syms_25;
     AGroup 15403 18 syms_36; AGroup 15482 23 syms_191]);
   (267171, 5, [AGroup 5 1 [sym_ppDirective]; AGroup 3 2 syms_5; AGroup 15439 4 syms_25;
     AGroup 15403 18 syms_36; AGroup 15437 23 syms_197]);
   (267230, 5, [AGroup 5 1 [sym_ppDirective]; AGroup 3 2 syms_5; AGroup 15496 4 syms_25;
     AGroup 15403 18 syms_36; AGroup 15494 23 syms_197]);
   (267289, 4, [AGroup 5 1 [sym_ppDirective]; AGroup 3 2 syms_5; AGroup 15355 4 syms_25;
     AGroup 15353 41 syms_207]);
   (267346, 4, [AGroup 5 1 [sym_ppDirective]; AGroup 3 2 syms_5; AGroup 10794 5 syms_150;
     AGroup 10792 40 syms_172]);
   (267403, 4, [AGroup 5 1 [sym_ppDirective]; AGroup 3 2 syms_5; AGroup 10804 5 syms_150;
     AGroup 10802 40 syms_172]);
   (267460, 5, [AGroup 5 1 [sym_ppDirective]; AGroup 3 2 syms_5; AGroup 15473 4 syms_25;
     AGroup 15403 18 syms_36; AGroup 15471 23 syms_205]);
   (267519, 5, [AGroup 5 1 [sym_ppDirective]; AGroup 3 2 syms_5; AGroup 18720 5 syms_150;
     AGroup 18739 5 syms_60; AGroup 18718 35 syms_192]);
   (267578, 4, [AGroup 5 1 [sym_ppDirective]; AGroup 3 2 syms_5; AGroup 10712 5 syms_150;
     AGroup 10710 40 syms_172]);
   (267635, 4, [AGroup 5 1 [sym_ppDirective]; AGroup 3 2 syms_5; AGroup 15295 4 syms_25;
     AGroup 15293 41 syms_208]);
   (267692, 4, [AGroup 5 1 [sym_ppDirective]; AGroup 3 2 syms_5; AGroup 15355 4 syms_25;
     AGroup 15353 41 syms_206]);
   (267749, 29, [AGroup 5 1 [sym_ppDirective]; AGroup 13347 1 [anon_sym_LBRACK];
     AGroup 13351 1 [aux_sym_ppUsesBlock_token1]; AGroup 13365 1 [sym_identifier];
     AGroup 13367 1 [sym_kGeneric]; AGroup 13369 1 [sym_kOperator]; AGroup 13373 1 [sym_kStrict];
     AGroup 13377 1 [sym_kCase]; AGroup 13379 1 [sym_kClass]; AGroup 13391 1 [sym_kProperty];
     AGroup 13395 1 [sym_kType]; AGroup 18741 1 [sym_kEnd]; SGroup 2 1 [sym__ppIf];
     SGroup 6354 1 [sym__visibility]; SGroup 9779 1 [sym_ppBlock];
     SGroup 9835 1 [sym__declOperator]; SGroup 10247 1 [sym__declProc];
     SGroup 10617 1 [sym_rttiAttributes]; SGroup 10730 1 [aux_sym_rttiAttributes_repeat2];
     SGroup 13987 1 [aux_sym_genericArg_repeat1]; SGroup 15726 1 [sym_declVariant];
     AGroup 3 2 syms_5; AGroup 13381 2 syms_65; AGroup 13393 2 syms_66; SGroup 7758 2 syms_68;
     SGroup 10508 3 syms_69; AGroup 13383 4 syms_3; AGroup 13371 6 syms_70; SGroup 6239 6 syms_71]);
   (267856, 6, [AGroup 5 1 [sym_ppDirective]; AGroup 3 2 syms_5; AGroup 18743 2 syms_186;
     SGroup 5771 2 syms_187; AGroup 18703 5 syms_150; AGroup 18701 36 syms_209]);
   (267917, 30, [AGroup 5 1 [sym_ppDirective]; AGroup 9 1 [anon_sym_LBRACK];
     AGroup 11 1 [aux_sym_ppUsesBlock_token1]; AGroup 13 1 [sym_kGeneric];
     AGroup 15 1 [sym_kOperator]; AGroup 18746 1 [anon_sym_COLON];
     AGroup 18748 1 [anon_sym_LPAREN]; AGroup 18750 1 [sym_identifier];
     AGroup 18752 1 [sym_kAsm]; AGroup 18754 1 [sym_kBegin]; AGroup 18756 1 [sym_kClass];
     AGroup 18760 1 [sym_kExports]; AGroup 18762 1 [sym_kLabel]; AGroup 18766 1 [sym_kType];
     AGroup 18768 1 [sym_kUses]; SGroup 16 1 [sym__ppIf]; SGroup 4018 1 [sym_blockTr];
     SGroup 6432 1 [sym_declProc]; SGroup 6556 1 [sym_declArgs]; SGroup 7790 1 [sym_asmTr];
     SGroup 10355 1 [sym__declProc]; SGroup 10443 1 [sym__declOperator];
     SGroup 11110 1 [sym_rttiAttributes]; SGroup 11216 1 [aux_sym_rttiAttributes_repeat2];
     AGroup 3 2 syms_5; AGroup 18758 2 syms_65; AGroup 18764 2 syms_66; SGroup 11226 3 syms_2;
     AGroup 23 4 syms_3; SGroup 6938 11 syms_210]);
   (268026, 5, [AGroup 5 1 [sym_ppDirective]; AGroup 3 2 syms_5; AGroup 15473 4 syms_25;
     AGroup 15403 18 syms_36; AGroup 15471 23 syms_211]);
   (268085, 4, [AGroup 5 1 [sym_ppDirective]; AGroup 3 2 syms_5; AGroup 15355 4 syms_25;
     AGroup 15353 41 syms_208]);
   (268142, 29, [AGroup 5 1 [sym_ppDirective]; AGroup 13347 1 [anon_sym_LBRACK];
     AGroup 13351 1 [aux_sym_ppUsesBlock_token1]; AGroup 13365 1 [sym_identifier];
     AGroup 13367 1 [sym_kGeneric]; AGroup 13369 1 [sym_kOperator]; AGroup 13373 1 [sym_kStrict];
     AGroup 13377 1 [sym_kCase]; AGroup 13379 1 [sym_kClass]; AGroup 13391 1 [sym_kProperty];
     AGroup 13395 1 [sym_kType]; AGroup 18770 1 [sym_kEnd]; SGroup 2 1 [sym__ppIf];
     SGroup 6354 1 [sym__visibility]; SGroup 9779 1 [sym_ppBlock];
     SGroup 9835 1 [sym__declOperator]; SGroup 10247 1 [sym__declProc];
     SGroup 10617 1 [sym_rttiAttributes]; SGroup 10730 1 [aux_sym_rttiAttributes_repeat2];
     SGroup 13987 1 [aux_sym_genericArg_repeat1]; SGroup 15535 1 [sym_declVariant];
     AGroup 3 2 syms_5; AGroup 13381 2 syms_65; AGroup 13393 2 syms_66; SGroup 7758 2 syms_68;
     SGroup 10500 3 syms_69; AGroup 13383 4 syms_3; AGroup 13371 6 syms_70; SGroup 6310 6 syms_71]);
   (268249, 5, [AGroup 5 1 [sym_ppDirective]; AGroup 3 2 syms_5; AGroup 15504 4 syms_25;
     AGroup 15403 18 syms_36; AGroup 15502 23 syms_204]);
   (268308, 5, [AGroup 5 1 [sym_ppDirective]; AGroup 3 2 syms_5; AGroup 15504 4 syms_25;
     AGroup 15403 18 syms_36; AGroup 15502 23 syms_205]);
   (268367, 5, [AGroup 5 1 [sym_ppDirective]; AGroup 3 2 syms_5; AGroup 15492 4 syms_25;
     AGroup 15403 18 syms_36; AGroup 15490 23 syms_191]);
   (268426, 5, [AGroup 5 1 [sym_ppDirective]; AGroup 3 2 syms_5; AGroup 15496 4 syms_25;
     AGroup 15403 18 syms_36; AGroup 15494 23 syms_198]);
   (268485, 5, [AGroup 5 1 [sym_ppDirective]; AGroup 3 2 syms_5; AGroup 15484 4 syms_25;
     AGroup 15403 18 syms_36; AGroup 15482 23 syms_205]);
   (268544, 5, [AGroup 5 1 [sym_ppDirective]; AGroup 3 2 syms_5; AGroup 15401 4 syms_25;
     AGroup 15403 18 syms_36; AGroup 15399 23 syms_191]);
   (268603, 5, [AGroup 5 1 [sym_ppDirective]; AGroup 3 2 syms_5; AGroup 15504 4 syms_25;
     AGroup 15403 18 syms_36; AGroup 15502 23 syms_211]);
   (268662, 5, [AGroup 5 1 [sym_ppDirective]; AGroup 3 2 syms_5; AGroup 15484 4 syms_25;
     AGroup 15403 18 syms_36; AGroup 15482 23 syms_211]);
   (268721, 4, [AGroup 5 1 [sym_ppDirective]; AGroup 3 2 syms_5; AGroup 10722 5 syms_150;
     AGroup 10720 40 syms_172]);
   (268778, 5, [AGroup 5 1 [sym_ppDirective]; AGroup 3 2 syms_5; AGroup 15492 4 syms_25;
     AGroup 15403 18 syms_36; AGroup 15490 23 syms_211]);
   (268837, 5, [AGroup 5 1 [sym_ppDirective]; AGroup 3 2 syms_5; AGroup 15401 4 syms_25;
     AGroup 15403 18 syms_36; AGroup 15399 23 syms_211]);
   (268896, 4, [AGroup 5 1 [sym_ppDirective]; AGroup 3 2 syms_5; AGroup 10864 5 syms_150;
     AGroup 10862 40 syms_172]);
   (268953, 4, [AGroup 5 1 [sym_ppDirective]; AGroup 3 2 syms_5; AGroup 10908 5 syms_150;
     AGroup 10906 40 syms_172]);
   (269010, 4, [AGroup 5 1 [sym_ppDirective]; AGroup 3 2 syms_5; AGroup 18774 5 syms_150;
     AGroup 18772 40 syms_172]);
   (269067, 5, [AGroup 5 1 [sym_ppDirective]; AGroup 3 2 syms_5; AGroup 15492 4 syms_25;
     AGroup 15403 18 syms_36; AGroup 15490 23 syms_205]);
   (269126, 5, [AGroup 5 1 [sym_ppDirective]; AGroup 3 2 syms_5; AGroup 15401 4 syms_25;
     AGroup 15403 18 syms_36; AGroup 15399 23 syms_205]);
   (269185, 4, [AGroup 5 1 [sym_ppDirective]; AGroup 3 2 syms_5; AGroup 10868 5 syms_150;
     AGroup 10866 40 syms_172]);
   (269242, 4, [AGroup 5 1 [sym_ppDirective]; AGroup 3 2 syms_5; AGroup 18778 5 syms_150;
     AGroup 18776 40 syms_172]);
   (269299, 5, [AGroup 5 1 [sym_ppDirective]; AGroup 3 2 syms_5; AGroup 15439 4 syms_25;
     AGroup 15403 18 syms_36; AGroup 15437 23 syms_204]);
   (269358, 4, [AGroup 5 1 [sym_ppDirective]; AGroup 3 2 syms_5; AGroup 10912 5 syms_150;
     AGroup 10910 40 syms_172]);
   (269415, 5, [AGroup 5 1 [sym_ppDirective]; AGroup 3 2 syms_5; AGroup 15439 4 syms_25;
     AGroup 15403 18 syms_36; AGroup 15437 23 syms_211]);
   (269474, 4, [AGroup 5 1 [sym_ppDirective]; AGroup 3 2 syms_5; AGroup 10734 5 syms_150;
     AGroup 10732 40 syms_172]);
   (269531, 4, [AGroup 5 1 [sym_ppDirective]; AGroup 3 2 syms_5; AGroup 15295 4 syms_25;
     AGroup 15293 41 syms_194]);
   (269588, 5, [AGroup 5 1 [sym_ppDirective]; AGroup 3 2 syms_5; AGroup 15488 4 syms_25;
     AGroup 15403 18 syms_36; AGroup 15486 23 syms_204]);
   (269647, 4, [AGroup 5 1 [sym_ppDirective]; AGroup 3 2 syms_5; AGroup 10852 5 syms_150;
     AGroup 10850 40 syms_172]);
   (269704, 5, [AGroup 5 1 [sym_ppDirective]; AGroup 3 2 syms_5; AGroup 15439 4 syms_25;
     AGroup 15403 18 syms_36; AGroup 15437 23 syms_205]);
   (269763, 5, [AGroup 5 1 [sym_ppDirective]; AGroup 3 2 syms_5; AGroup 15439 4 syms_25;
     AGroup 15403 18 syms_36; AGroup 15437 23 syms_191]);
   (269822, 5, [AGroup 5 1 [sym_ppDirective]; AGroup 3 2 syms_5; AGroup 15488 4 syms_25;
     AGroup 15403 18 syms_36; AGroup 15486 23 syms_205]);
   (269881, 4, [AGroup 5 1 [sym_ppDirective]; AGroup 3 2 syms_5; AGroup 10856 5 syms_150;
     AGroup 10854 40 syms_172]);
   (269938, 5, [AGroup 5 1 [sym_ppDirective]; AGroup 3 2 syms_5; AGroup 15488 4 syms_25;
     AGroup 15403 18 syms_36; AGroup 15486 23 syms_191]);
   (269997, 5, [AGroup 5 1 [sym_ppDirective]; AGroup 3 2 syms_5; AGroup 15473 4 syms_25;
     AGroup 15403 18 syms_36; AGroup 15471 23 syms_204]);
   (270056, 2, [AGroup 3 3 syms_1; AGroup 10953 45 syms_201]);
   (270109, 5, [AGroup 5 1 [sym_ppDirective]; AGroup 3 2 syms_5; AGroup 15488 4 syms_25;
     AGroup 15403 18 syms_36; AGroup 15486 23 syms_211]);
   (270168, 4, [AGroup 5 1 [sym_ppDirective]; AGroup 3 2 syms_5; AGroup 10734 5 syms_150;
     AGroup 10732 40 syms_172]);
   (270225, 5, [AGroup 5 1 [sym_ppDirective]; AGroup 3 2 syms_5; AGroup 15473 4 syms_25;
     AGroup 15403 18 syms_36; AGroup 15471 23 syms_197]);
   (270284, 4, [AGroup 5 1 [sym_ppDirective]; AGroup 3 2 syms_5; AGroup 15295 4 syms_25;
     AGroup 15293 41 syms_207]);
   (270341, 5, [AGroup 5 1 [sym_ppDirective]; AGroup 3 2 syms_5; AGroup 15496 4 syms_25;
     AGroup 15403 18 syms_36; AGroup 15494 23 syms_211]);
   (270400, 4, [AGroup 5 1 [sym_ppDirective]; AGroup 3 2 syms_5; AGroup 18782 5 syms_150;
     AGroup 18780 40 syms_172]);
   (270457, 4, [AGroup 5 1 [sym_ppDirective]; AGroup 3 2 syms_5; AGroup 10844 5 syms_150;
     AGroup 10842 39 syms_212]);
   (270513, 4, [AGroup 5 1 [sym_ppDirective]; AGroup 3 2 syms_5; AGroup 10888 5 syms_150;
     AGroup 10886 39 syms_212]);
   (270569, 5, [AGroup 5 1 [sym_ppDirective]; AGroup 18784 1 [sym_identifier]; AGroup 3 2 syms_5;
     AGroup 17342 4 syms_25; AGroup 17340 39 syms_126]);
   (270627, 4, [AGroup 5 1 [sym_ppDirective]; AGroup 3 2 syms_5; AGroup 10892 5 syms_150;
     AGroup 10890 39 syms_212]);
   (270683, 4, [AGroup 5 1 [sym_ppDirective]; AGroup 3 2 syms_5; AGroup 10896 5 syms_150;
     AGroup 10894 39 syms_212]);
   (270739, 4, [AGroup 5 1 [sym_ppDirective]; AGroup 3 2 syms_5; AGroup 10900 5 syms_150;
     AGroup 10898 39 syms_212]);
   (270795, 6, [AGroup 5 1 [sym_ppDirective]; AGroup 18786 1 [sym_kHat]; SGroup 5247 1 [sym__exprIsNot];
     AGroup 3 2 syms_5; AGroup 16914 4 syms_25; AGroup 16912 38 syms_213]);
   (270855, 4, [AGroup 5 1 [sym_ppDirective]; AGroup 3 2 syms_5; AGroup 10904 5 syms_150;
     AGroup 10902 39 syms_212]);
   (270911, 5, [AGroup 5 1 [sym_ppDirective]; AGroup 18788 1 [sym_identifier]; AGroup 3 2 syms_5;
     AGroup 17348 4 syms_25; AGroup 17346 39 syms_126]);
   (270969, 4, [AGroup 5 1 [sym_ppDirective]; AGroup 3 2 syms_5; AGroup 10908 5 syms_150;
     AGroup 10906 39 syms_212]);
   (271025, 4, [AGroup 5 1 [sym_ppDirective]; AGroup 3 2 syms_5; AGroup 10864 5 syms_150;
     AGroup 10862 39 syms_212]);
   (271081, 4, [AGroup 5 1 [sym_ppDirective]; AGroup 3 2 syms_5; AGroup 10868 5 syms_150;
     AGroup 10866 39 syms_212]);
   (271137, 6, [AGroup 5 1 [sym_ppDirective]; AGroup 18786 1 [sym_kHat]; SGroup 5247 1 [sym__exprIsNot];
     AGroup 3 2 syms_5; AGroup 16904 4 syms_25; AGroup 16902 38 syms_213]);
   (271197, 5, [AGroup 5 1 [sym_ppDirective]; SGroup 5247 1 [sym__exprIsNot]; AGroup 3 2 syms_5;
     AGroup 17032 4 syms_25; AGroup 17030 39 syms_126]);
   (271255, 9, [AGroup 5 1 [sym_ppDirective]; AGroup 17042 1 [anon_sym_DOT];
     AGroup 18790 1 [anon_sym_LBRACK]; AGroup 18792 1 [anon_sym_LPAREN];
     AGroup 18794 1 [sym_kLt]; SGroup 5256 1 [sym_kDot]; AGroup 3 2 syms_5;
     AGroup 17046 2 syms_101; AGroup 17036 37 syms_214]);
   (271321, 10, [AGroup 5 1 [sym_ppDirective]; AGroup 18786 1 [sym_kHat]; AGroup 18800 1 [sym_kFdiv];
     AGroup 18802 1 [sym_kAs]; SGroup 5247 1 [sym__exprIsNot]; AGroup 3 2 syms_5;
     AGroup 16914 3 syms_94; AGroup 18796 4 syms_84; AGroup 18798 6 syms_86;
     AGroup 16912 27 syms_215]);
   (271389, 4, [AGroup 5 1 [sym_ppDirective]; AGroup 3 2 syms_5; AGroup 10912 5 syms_150;
     AGroup 10910 39 syms_212]);
   (271445, 4, [AGroup 5 1 [sym_ppDirective]; AGroup 3 2 syms_5; AGroup 10916 5 syms_150;
     AGroup 10914 39 syms_212]);
   (271501, 4, [AGroup 5 1 [sym_ppDirective]; AGroup 3 2 syms_5; AGroup 10768 5 syms_150;
     AGroup 10766 39 syms_212]);
   (271557, 4, [AGroup 5 1 [sym_ppDirective]; AGroup 3 2 syms_5; AGroup 10848 5 syms_150;
     AGroup 10846 39 syms_212]);
   (271613, 5, [AGroup 5 1 [sym_ppDirective]; AGroup 3 2 syms_5; AGroup 15473 4 syms_25;
     AGroup 15403 18 syms_36; AGroup 15471 22 syms_216]);
   (271671, 9, [AGroup 5 1 [sym_ppDirective]; AGroup 18786 1 [sym_kHat]; AGroup 18800 1 [sym_kFdiv];
     AGroup 18802 1 [sym_kAs]; SGroup 5247 1 [sym__exprIsNot]; AGroup 3 2 syms_5;
     AGroup 16914 3 syms_94; AGroup 18798 6 syms_86; AGroup 16912 31 syms_217]);
   (271737, 4, [AGroup 5 1 [sym_ppDirective]; AGroup 3 2 syms_5; AGroup 10860 5 syms_150;
     AGroup 10858 39 syms_212]);
   (271793, 5, [AGroup 5 1 [sym_ppDirective]; AGroup 3 2 syms_5; AGroup 15496 4 syms_25;
     AGroup 15403 18 syms_36; AGroup 15494 22 syms_216]);
   (271851, 4, [AGroup 5 1 [sym_ppDirective]; AGroup 3 2 syms_5; AGroup 10828 5 syms_150;
     AGroup 10826 39 syms_212]);
   (271907, 4, [AGroup 5 1 [sym_ppDirective]; AGroup 3 2 syms_5; AGroup 10880 5 syms_150;
     AGroup 10878 39 syms_212]);
   (271963, 4, [AGroup 5 1 [sym_ppDirective]; AGroup 3 2 syms_5; AGroup 10712 5 syms_150;
     AGroup 10710 39 syms_212]);
   (272019, 4, [AGroup 5 1 [sym_ppDirective]; AGroup 3 2 syms_5; AGroup 10872 5 syms_150;
     AGroup 10870 39 syms_212]);
   (272075, 5, [AGroup 5 1 [sym_ppDirective]; AGroup 3 2 syms_5; AGroup 15488 4 syms_25;
     AGroup 15403 18 syms_36; AGroup 15486 22 syms_216]);
   (272133, 5, [AGroup 5 1 [sym_ppDirective]; SGroup 5256 1 [sym_kDot]; AGroup 3 2 syms_5;
     AGroup 16970 4 syms_25; AGroup 16968 39 syms_126]);
   (272191, 4, [AGroup 5 1 [sym_ppDirective]; AGroup 3 2 syms_5; AGroup 10734 5 syms_150;
     AGroup 10732 39 syms_212]);
   (272247, 4, [AGroup 5 1 [sym_ppDirective]; AGroup 3 2 syms_5; AGroup 10742 5 syms_150;
     AGroup 10740 39 syms_212]);
   (272303, 4, [AGroup 5 1 [sym_ppDirective]; AGroup 3 2 syms_5; AGroup 10876 5 syms_150;
     AGroup 10874 39 syms_212]);
   (272359, 4, [AGroup 5 1 [sym_ppDirective]; AGroup 3 2 syms_5; AGroup 10752 5 syms_150;
     AGroup 10750 39 syms_212]);
   (272415, 5, [AGroup 5 1 [sym_ppDirective]; AGroup 18804 1 [sym_kElse]; AGroup 3 2 syms_5;
     AGroup 10722 5 syms_150; AGroup 10720 38 syms_218]);
   (272473, 4, [AGroup 5 1 [sym_ppDirective]; AGroup 3 2 syms_5; AGroup 10762 5 syms_150;
     AGroup 10760 39 syms_212]);
   (272529, 5, [AGroup 5 1 [sym_ppDirective]; AGroup 3 2 syms_5; AGroup 15504 4 syms_25;
     AGroup 15403 18 syms_36; AGroup 15502 22 syms_216]);
   (272587, 5, [AGroup 5 1 [sym_ppDirective]; AGroup 18806 1 [sym_kElse]; AGroup 3 2 syms_5;
     AGroup 10722 5 syms_150; AGroup 10720 38 syms_218]);
   (272645, 4, [AGroup 5 1 [sym_ppDirective]; AGroup 3 2 syms_5; AGroup 18782 5 syms_150;
     AGroup 18780 39 syms_219]);
   (272701, 14, [AGroup 5 1 [sym_ppDirective]; AGroup 16886 1 [anon_sym_LPAREN]; AGroup 18786 1 [sym_kHat];
     AGroup 18800 1 [sym_kFdiv]; AGroup 18802 1 [sym_kAs]; AGroup 18812 1 [sym_kIs];
     AGroup 18814 1 [sym_kNot]; SGroup 5247 1 [sym__exprIsNot]; AGroup 3 2 syms_5;
     AGroup 18808 2 syms_83; AGroup 18796 4 syms_84; AGroup 18810 5 syms_85;
     AGroup 18798 6 syms_86; AGroup 16884 20 syms_220]);
   (272777, 4, [AGroup 5 1 [sym_ppDirective]; AGroup 3 2 syms_5; AGroup 15295 4 syms_25;
     AGroup 15293 40 syms_221]);
   (272833, 4, [AGroup 5 1 [sym_ppDirective]; AGroup 3 2 syms_5; AGroup 10776 5 syms_150;
     AGroup 10774 39 syms_212]);
   (272889, 4, [AGroup 5 1 [sym_ppDirective]; AGroup 3 2 syms_5; AGroup 10852 5 syms_150;
     AGroup 10850 39 syms_212]);
   (272945, 4, [AGroup 5 1 [sym_ppDirective]; AGroup 3 2 syms_5; AGroup 10820 5 syms_150;
     AGroup 10818 39 syms_212]);
   (273001, 4, [AGroup 5 1 [sym_ppDirective]; AGroup 3 2 syms_5; AGroup 10780 5 syms_150;
     AGroup 10778 39 syms_212])
  ].

(** States 5859 to 5958. *)
Definition small_runs_5859 : list small_run :=
  [
   (273057, 4, [AGroup 5 1 [sym_ppDirective]; AGroup 3 2 syms_5; AGroup 10786 5 syms_150;
     AGroup 10784 39 syms_212]);
   (273113, 5, [AGroup 5 1 [sym_ppDirective]; AGroup 3 2 syms_5; AGroup 15492 4 syms_25;
     AGroup 15403 18 syms_36; AGroup 15490 22 syms_216]);
   (273171, 5, [AGroup 5 1 [sym_ppDirective]; AGroup 18816 1 [sym_kElse]; AGroup 3 2 syms_5;
     AGroup 10722 5 syms_150; AGroup 10720 38 syms_218]);
   (273229, 4, [AGroup 5 1 [sym_ppDirective]; AGroup 3 2 syms_5; AGroup 10856 5 syms_150;
     AGroup 10854 39 syms_212]);
   (273285, 5, [AGroup 5 1 [sym_ppDirective]; AGroup 3 2 syms_5; AGroup 15401 4 syms_25;
     AGroup 15403 18 syms_36; AGroup 15399 22 syms_216]);
   (273343, 4, [AGroup 5 1 [sym_ppDirective]; AGroup 3 2 syms_5; AGroup 10722 5 syms_150;
     AGroup 10720 39 syms_212]);
   (273399, 4, [AGroup 5 1 [sym_ppDirective]; AGroup 3 2 syms_5; AGroup 10884 5 syms_150;
     AGroup 10882 39 syms_212]);
   (273455, 4, [AGroup 5 1 [sym_ppDirective]; AGroup 3 2 syms_5; AGroup 10794 5 syms_150;
     AGroup 10792 39 syms_212]);
   (273511, 7, [AGroup 5 1 [sym_ppDirective]; AGroup 16974 1 [anon_sym_COMMA];
     AGroup 16978 1 [anon_sym_DOT]; AGroup 3 2 syms_5; AGroup 16976 2 syms_97;
     AGroup 16981 2 syms_83; AGroup 16972 38 syms_222]);
   (273573, 5, [AGroup 5 1 [sym_ppDirective]; AGroup 3 2 syms_5; AGroup 15484 4 syms_25;
     AGroup 15403 18 syms_36; AGroup 15482 22 syms_216]);
   (273631, 4, [AGroup 5 1 [sym_ppDirective]; AGroup 3 2 syms_5; AGroup 10804 5 syms_150;
     AGroup 10802 39 syms_212]);
   (273687, 10, [AGroup 5 1 [sym_ppDirective]; AGroup 18786 1 [sym_kHat]; AGroup 18800 1 [sym_kFdiv];
     AGroup 18802 1 [sym_kAs]; SGroup 5247 1 [sym__exprIsNot]; AGroup 3 2 syms_5;
     AGroup 17016 3 syms_94; AGroup 18796 4 syms_84; AGroup 18798 6 syms_86;
     AGroup 17014 27 syms_215]);
   (273755, 4, [AGroup 5 1 [sym_ppDirective]; AGroup 3 2 syms_5; AGroup 10808 5 syms_150;
     AGroup 10806 39 syms_212]);
   (273811, 4, [AGroup 5 1 [sym_ppDirective]; AGroup 3 2 syms_5; AGroup 10708 5 syms_150;
     AGroup 10706 39 syms_212]);
   (273867, 4, [AGroup 5 1 [sym_ppDirective]; AGroup 3 2 syms_5; AGroup 10840 5 syms_150;
     AGroup 10838 39 syms_212]);
   (273923, 4, [AGroup 5 1 [sym_ppDirective]; AGroup 3 2 syms_5; AGroup 15355 4 syms_25;
     AGroup 15353 40 syms_221]);
   (273979, 4, [AGroup 5 1 [sym_ppDirective]; AGroup 3 2 syms_5; AGroup 10812 5 syms_150;
     AGroup 10810 39 syms_212]);
   (274035, 5, [AGroup 5 1 [sym_ppDirective]; AGroup 3 2 syms_5; AGroup 15439 4 syms_25;
     AGroup 15403 18 syms_36; AGroup 15437 22 syms_216]);
   (274093, 4, [AGroup 5 1 [sym_ppDirective]; AGroup 3 2 syms_5; AGroup 10734 5 syms_150;
     AGroup 10732 39 syms_212]);
   (274149, 4, [AGroup 5 1 [sym_ppDirective]; AGroup 3 2 syms_5; AGroup 10804 5 syms_150;
     AGroup 10802 38 syms_223]);
   (274204, 4, [AGroup 5 1 [sym_ppDirective]; AGroup 3 2 syms_5; AGroup 17362 4 syms_25;
     AGroup 17360 39 syms_126]);
   (274259, 4, [AGroup 5 1 [sym_ppDirective]; AGroup 3 2 syms_5; AGroup 10780 5 syms_150;
     AGroup 10778 38 syms_218]);
   (274314, 4, [AGroup 5 1 [sym_ppDirective]; AGroup 3 2 syms_5; AGroup 11316 4 syms_25;
     AGroup 11311 39 syms_126]);
   (274369, 4, [AGroup 5 1 [sym_ppDirective]; AGroup 3 2 syms_5; AGroup 10848 5 syms_150;
     AGroup 10846 38 syms_218]);
   (274424, 4, [AGroup 5 1 [sym_ppDirective]; AGroup 3 2 syms_5; AGroup 10888 5 syms_150;
     AGroup 10886 38 syms_218]);
   (274479, 4, [AGroup 5 1 [sym_ppDirective]; AGroup 3 2 syms_5; AGroup 10786 5 syms_150;
     AGroup 10784 38 syms_218]);
   (274534, 4, [AGroup 5 1 [sym_ppDirective]; AGroup 3 2 syms_5; AGroup 10722 5 syms_150;
     AGroup 10720 38 syms_223]);
   (274589, 4, [AGroup 5 1 [sym_ppDirective]; AGroup 3 2 syms_5; AGroup 18737 5 syms_150;
     AGroup 18735 38 syms_218]);
   (274644, 4, [AGroup 5 1 [sym_ppDirective]; AGroup 3 2 syms_5; AGroup 10856 5 syms_150;
     AGroup 10854 38 syms_218]);
   (274699, 4, [AGroup 5 1 [sym_ppDirective]; AGroup 3 2 syms_5; AGroup 10808 5 syms_150;
     AGroup 10806 38 syms_218]);
   (274754, 4, [AGroup 5 1 [sym_ppDirective]; AGroup 3 2 syms_5; AGroup 10776 5 syms_150;
     AGroup 10774 38 syms_223]);
   (274809, 4, [AGroup 5 1 [sym_ppDirective]; AGroup 3 2 syms_5; AGroup 10916 5 syms_150;
     AGroup 10914 38 syms_218]);
   (274864, 4, [AGroup 5 1 [sym_ppDirective]; AGroup 3 2 syms_5; AGroup 17158 4 syms_25;
     AGroup 17156 39 syms_126]);
   (274919, 4, [AGroup 5 1 [sym_ppDirective]; AGroup 3 2 syms_5; AGroup 10852 5 syms_150;
     AGroup 10850 38 syms_223]);
   (274974, 4, [AGroup 5 1 [sym_ppDirective]; AGroup 3 2 syms_5; AGroup 10794 5 syms_150;
     AGroup 10792 38 syms_223]);
   (275029, 4, [AGroup 5 1 [sym_ppDirective]; AGroup 3 2 syms_5; AGroup 18774 5 syms_150;
     AGroup 18772 38 syms_218]);
   (275084, 4, [AGroup 5 1 [sym_ppDirective]; AGroup 3 2 syms_5; AGroup 15496 4 syms_25;
     AGroup 15494 39 syms_126]);
   (275139, 4, [AGroup 5 1 [sym_ppDirective]; AGroup 3 2 syms_5; AGroup 15492 4 syms_25;
     AGroup 15490 39 syms_126]);
   (275194, 4, [AGroup 5 1 [sym_ppDirective]; AGroup 3 2 syms_5; AGroup 10856 5 syms_150;
     AGroup 10854 38 syms_223]);
   (275249, 4, [AGroup 5 1 [sym_ppDirective]; AGroup 3 2 syms_5; AGroup 18821 5 syms_150;
     AGroup 18818 38 syms_218]);
   (275304, 4, [AGroup 5 1 [sym_ppDirective]; AGroup 3 2 syms_5; AGroup 10864 5 syms_150;
     AGroup 10862 38 syms_218]);
   (275359, 4, [AGroup 5 1 [sym_ppDirective]; AGroup 3 2 syms_5; AGroup 10868 5 syms_150;
     AGroup 10866 38 syms_218]);
   (275414, 6, [AGroup 5 1 [sym_ppDirective]; AGroup 3 2 syms_5; AGroup 18824 2 syms_186;
     SGroup 5901 2 syms_187; AGroup 18703 5 syms_150; AGroup 18701 34 syms_224]);
   (275473, 4, [AGroup 5 1 [sym_ppDirective]; AGroup 3 2 syms_5; AGroup 10840 5 syms_150;
     AGroup 10838 38 syms_223]);
   (275528, 4, [AGroup 5 1 [sym_ppDirective]; AGroup 3 2 syms_5; AGroup 17592 4 syms_25;
     AGroup 17590 39 syms_126]);
   (275583, 4, [AGroup 5 1 [sym_ppDirective]; AGroup 3 2 syms_5; AGroup 10780 5 syms_150;
     AGroup 10778 38 syms_223]);
   (275638, 4, [AGroup 5 1 [sym_ppDirective]; AGroup 3 2 syms_5; AGroup 10734 5 syms_150;
     AGroup 10732 38 syms_218]);
   (275693, 4, [AGroup 5 1 [sym_ppDirective]; AGroup 3 2 syms_5; AGroup 10844 5 syms_150;
     AGroup 10842 38 syms_218]);
   (275748, 4, [AGroup 5 1 [sym_ppDirective]; AGroup 3 2 syms_5; AGroup 18782 5 syms_150;
     AGroup 18780 38 syms_225]);
   (275803, 5, [AGroup 5 1 [sym_ppDirective]; AGroup 18827 1 [sym_kElse]; AGroup 3 2 syms_5;
     AGroup 10722 5 syms_150; AGroup 10720 37 syms_226]);
   (275860, 4, [AGroup 5 1 [sym_ppDirective]; AGroup 3 2 syms_5; AGroup 15401 4 syms_25;
     AGroup 15399 39 syms_126]);
   (275915, 4, [AGroup 5 1 [sym_ppDirective]; AGroup 3 2 syms_5; AGroup 10860 5 syms_150;
     AGroup 10858 38 syms_223]);
   (275970, 4, [AGroup 5 1 [sym_ppDirective]; AGroup 3 2 syms_5; AGroup 9812 5 syms_150;
     AGroup 9810 38 syms_218]);
   (276025, 4, [AGroup 5 1 [sym_ppDirective]; AGroup 3 2 syms_5; AGroup 10864 5 syms_150;
     AGroup 10862 38 syms_223]);
   (276080, 4, [AGroup 5 1 [sym_ppDirective]; AGroup 3 2 syms_5; AGroup 10896 5 syms_150;
     AGroup 10894 38 syms_218]);
   (276135, 4, [AGroup 5 1 [sym_ppDirective]; AGroup 3 2 syms_5; AGroup 10722 5 syms_150;
     AGroup 10720 38 syms_218]);
   (276190, 4, [AGroup 5 1 [sym_ppDirective]; AGroup 3 2 syms_5; AGroup 10868 5 syms_150;
     AGroup 10866 38 syms_223]);
   (276245, 4, [AGroup 5 1 [sym_ppDirective]; AGroup 3 2 syms_5; AGroup 10768 5 syms_150;
     AGroup 10766 38 syms_218]);
   (276300, 4, [AGroup 5 1 [sym_ppDirective]; AGroup 3 2 syms_5; AGroup 17082 4 syms_25;
     AGroup 17080 39 syms_126]);
   (276355, 4, [AGroup 5 1 [sym_ppDirective]; AGroup 3 2 syms_5; AGroup 10762 5 syms_150;
     AGroup 10760 38 syms_218]);
   (276410, 4, [AGroup 5 1 [sym_ppDirective]; AGroup 3 2 syms_5; AGroup 17172 4 syms_25;
     AGroup 17170 39 syms_126]);
   (276465, 4, [AGroup 5 1 [sym_ppDirective]; AGroup 3 2 syms_5; AGroup 10872 5 syms_150;
     AGroup 10870 38 syms_223]);
   (276520, 4, [AGroup 5 1 [sym_ppDirective]; AGroup 3 2 syms_5; AGroup 10876 5 syms_150;
     AGroup 10874 38 syms_223]);
   (276575, 4, [AGroup 5 1 [sym_ppDirective]; AGroup 3 2 syms_5; AGroup 18831 4 syms_25;
     AGroup 18829 39 syms_126]);
   (276630, 4, [AGroup 5 1 [sym_ppDirective]; AGroup 3 2 syms_5; AGroup 10804 5 syms_150;
     AGroup 10802 38 syms_218]);
   (276685, 4, [AGroup 5 1 [sym_ppDirective]; AGroup 3 2 syms_5; AGroup 15488 4 syms_25;
     AGroup 15486 39 syms_126]);
   (276740, 4, [AGroup 5 1 [sym_ppDirective]; AGroup 3 2 syms_5; AGroup 10955 5 syms_150;
     AGroup 10953 38 syms_218]);
   (276795, 4, [AGroup 5 1 [sym_ppDirective]; AGroup 3 2 syms_5; AGroup 10734 5 syms_150;
     AGroup 10732 38 syms_218]);
   (276850, 4, [AGroup 5 1 [sym_ppDirective]; AGroup 3 2 syms_5; AGroup 17154 4 syms_25;
     AGroup 17152 39 syms_126]);
   (276905, 4, [AGroup 5 1 [sym_ppDirective]; AGroup 3 2 syms_5; AGroup 10828 5 syms_150;
     AGroup 10826 38 syms_218]);
   (276960, 4, [AGroup 5 1 [sym_ppDirective]; AGroup 3 2 syms_5; AGroup 10884 5 syms_150;
     AGroup 10882 38 syms_218]);
   (277015, 4, [AGroup 5 1 [sym_ppDirective]; AGroup 3 2 syms_5; AGroup 10708 5 syms_150;
     AGroup 10706 38 syms_218]);
   (277070, 4, [AGroup 5 1 [sym_ppDirective]; AGroup 3 2 syms_5; AGroup 10752 5 syms_150;
     AGroup 10750 38 syms_218]);
   (277125, 4, [AGroup 5 1 [sym_ppDirective]; AGroup 3 2 syms_5; AGroup 10880 5 syms_150;
     AGroup 10878 38 syms_218]);
   (277180, 4, [AGroup 5 1 [sym_ppDirective]; AGroup 3 2 syms_5; AGroup 10844 5 syms_150;
     AGroup 10842 38 syms_223]);
   (277235, 4, [AGroup 5 1 [sym_ppDirective]; AGroup 3 2 syms_5; AGroup 10712 5 syms_150;
     AGroup 10710 38 syms_218]);
   (277290, 4, [AGroup 5 1 [sym_ppDirective]; AGroup 3 2 syms_5; AGroup 10820 5 syms_150;
     AGroup 10818 38 syms_223]);
   (277345, 4, [AGroup 5 1 [sym_ppDirective]; AGroup 3 2 syms_5; AGroup 10900 5 syms_150;
     AGroup 10898 38 syms_218]);
   (277400, 4, [AGroup 5 1 [sym_ppDirective]; AGroup 3 2 syms_5; AGroup 17256 4 syms_25;
     AGroup 17254 39 syms_126]);
   (277455, 4, [AGroup 5 1 [sym_ppDirective]; AGroup 3 2 syms_5; AGroup 15473 4 syms_25;
     AGroup 15471 39 syms_126]);
   (277510, 4, [AGroup 5 1 [sym_ppDirective]; AGroup 3 2 syms_5; AGroup 10884 5 syms_150;
     AGroup 10882 38 syms_223]);
   (277565, 4, [AGroup 5 1 [sym_ppDirective]; AGroup 3 2 syms_5; AGroup 10708 5 syms_150;
     AGroup 10706 38 syms_223]);
   (277620, 4, [AGroup 5 1 [sym_ppDirective]; AGroup 3 2 syms_5; AGroup 17096 4 syms_25;
     AGroup 17094 39 syms_126]);
   (277675, 4, [AGroup 5 1 [sym_ppDirective]; AGroup 3 2 syms_5; AGroup 17412 4 syms_25;
     AGroup 17410 39 syms_126]);
   (277730, 4, [AGroup 5 1 [sym_ppDirective]; AGroup 3 2 syms_5; AGroup 17328 4 syms_25;
     AGroup 17326 39 syms_126]);
   (277785, 4, [AGroup 5 1 [sym_ppDirective]; AGroup 3 2 syms_5; AGroup 18778 5 syms_150;
     AGroup 18776 38 syms_218]);
   (277840, 4, [AGroup 5 1 [sym_ppDirective]; AGroup 3 2 syms_5; AGroup 15484 4 syms_25;
     AGroup 15482 39 syms_126]);
   (277895, 4, [AGroup 5 1 [sym_ppDirective]; AGroup 3 2 syms_5; AGroup 10904 5 syms_150;
     AGroup 10902 38 syms_218]);
   (277950, 4, [AGroup 5 1 [sym_ppDirective]; AGroup 3 2 syms_5; AGroup 10820 5 syms_150;
     AGroup 10818 38 syms_218]);
   (278005, 4, [AGroup 5 1 [sym_ppDirective]; AGroup 3 2 syms_5; AGroup 17108 4 syms_25;
     AGroup 17106 39 syms_126]);
   (278060, 4, [AGroup 5 1 [sym_ppDirective]; AGroup 3 2 syms_5; AGroup 17358 4 syms_25;
     AGroup 17356 39 syms_126]);
   (278115, 4, [AGroup 5 1 [sym_ppDirective]; AGroup 3 2 syms_5; AGroup 17386 4 syms_25;
     AGroup 17384 39 syms_126]);
   (278170, 4, [AGroup 5 1 [sym_ppDirective]; AGroup 3 2 syms_5; AGroup 10786 5 syms_150;
     AGroup 10784 38 syms_223]);
   (278225, 4, [AGroup 5 1 [sym_ppDirective]; AGroup 3 2 syms_5; AGroup 10888 5 syms_150;
     AGroup 10886 38 syms_223]);
   (278280, 4, [AGroup 5 1 [sym_ppDirective]; AGroup 3 2 syms_5; AGroup 10892 5 syms_150;
     AGroup 10890 38 syms_223]);
   (278335, 6, [AGroup 5 1 [sym_ppDirective]; AGroup 3 2 syms_5; AGroup 18833 2 syms_186;
     SGroup 5954 2 syms_187; AGroup 18703 5 syms_150; AGroup 18701 34 syms_227]);
   (278394, 4, [AGroup 5 1 [sym_ppDirective]; AGroup 3 2 syms_5; AGroup 10896 5 syms_150;
     AGroup 10894 38 syms_223]);
   (278449, 4, [AGroup 5 1 [sym_ppDirective]; AGroup 3 2 syms_5; AGroup 10900 5 syms_150;
     AGroup 10898 38 syms_223]);
   (278504, 4, [AGroup 5 1 [sym_ppDirective]; AGroup 3 2 syms_5; AGroup 17398 4 syms_25;
     AGroup 17396 39 syms_126]);
   (278559, 4, [AGroup 5 1 [sym_ppDirective]; AGroup 3 2 syms_5; AGroup 10904 5 syms_150;
     AGroup 10902 38 syms_223])
  ].

(** States 5959 to 6058. *)
Definition small_runs_5959 : list small_run :=
  [
   (278614, 7, [AGroup 5 1 [sym_ppDirective]; AGroup 3202 1 [anon_sym_POUND]; AGroup 3 2 syms_5;
     AGroup 18836 2 syms_6; SGroup 5976 3 syms_13; AGroup 15235 7 syms_34;
     AGroup 15233 30 syms_37]);
   (278675, 4, [AGroup 5 1 [sym_ppDirective]; AGroup 3 2 syms_5; AGroup 17380 4 syms_25;
     AGroup 17378 39 syms_126]);
   (278730, 4, [AGroup 5 1 [sym_ppDirective]; AGroup 3 2 syms_5; AGroup 17550 4 syms_25;
     AGroup 17548 39 syms_126]);
   (278785, 4, [AGroup 5 1 [sym_ppDirective]; AGroup 3 2 syms_5; AGroup 10908 5 syms_150;
     AGroup 10906 38 syms_223]);
   (278840, 4, [AGroup 5 1 [sym_ppDirective]; AGroup 3 2 syms_5; AGroup 10860 5 syms_150;
     AGroup 10858 38 syms_218]);
   (278895, 4, [AGroup 5 1 [sym_ppDirective]; AGroup 3 2 syms_5; AGroup 10876 5 syms_150;
     AGroup 10874 38 syms_218]);
   (278950, 5, [AGroup 5 1 [sym_ppDirective]; AGroup 18838 1 [sym_kElse]; AGroup 3 2 syms_5;
     AGroup 10722 5 syms_150; AGroup 10720 37 syms_226]);
   (279007, 4, [AGroup 5 1 [sym_ppDirective]; AGroup 3 2 syms_5; AGroup 10908 5 syms_150;
     AGroup 10906 38 syms_218]);
   (279062, 4, [AGroup 5 1 [sym_ppDirective]; AGroup 3 2 syms_5; AGroup 17372 4 syms_25;
     AGroup 17370 39 syms_126]);
   (279117, 4, [AGroup 5 1 [sym_ppDirective]; AGroup 3 2 syms_5; AGroup 10852 5 syms_150;
     AGroup 10850 38 syms_218]);
   (279172, 4, [AGroup 5 1 [sym_ppDirective]; AGroup 3 2 syms_5; AGroup 18782 5 syms_150;
     AGroup 18780 38 syms_218]);
   (279227, 5, [AGroup 5 1 [sym_ppDirective]; AGroup 18840 1 [sym_kElse]; AGroup 3 2 syms_5;
     AGroup 10722 5 syms_150; AGroup 10720 37 syms_226]);
   (279284, 4, [AGroup 5 1 [sym_ppDirective]; AGroup 3 2 syms_5; AGroup 10912 5 syms_150;
     AGroup 10910 38 syms_223]);
   (279339, 4, [AGroup 5 1 [sym_ppDirective]; AGroup 3 2 syms_5; AGroup 6282 5 syms_150;
     AGroup 6280 38 syms_218]);
   (279394, 4, [AGroup 5 1 [sym_ppDirective]; AGroup 3 2 syms_5; AGroup 15439 4 syms_25;
     AGroup 15437 39 syms_126]);
   (279449, 4, [AGroup 5 1 [sym_ppDirective]; AGroup 3 2 syms_5; AGroup 17128 4 syms_25;
     AGroup 17126 39 syms_126]);
   (279504, 4, [AGroup 5 1 [sym_ppDirective]; AGroup 3 2 syms_5; AGroup 17116 4 syms_25;
     AGroup 17114 39 syms_126]);
   (279559, 7, [AGroup 5 1 [sym_ppDirective]; AGroup 18845 1 [anon_sym_POUND]; AGroup 3 2 syms_5;
     AGroup 18842 2 syms_6; SGroup 5976 3 syms_13; AGroup 15241 7 syms_34;
     AGroup 15239 30 syms_37]);
   (279620, 4, [AGroup 5 1 [sym_ppDirective]; AGroup 3 2 syms_5; AGroup 17408 4 syms_25;
     AGroup 17406 39 syms_126]);
   (279675, 4, [AGroup 5 1 [sym_ppDirective]; AGroup 3 2 syms_5; AGroup 10916 5 syms_150;
     AGroup 10914 38 syms_223]);
   (279730, 4, [AGroup 5 1 [sym_ppDirective]; AGroup 3 2 syms_5; AGroup 10872 5 syms_150;
     AGroup 10870 38 syms_218]);
   (279785, 4, [AGroup 5 1 [sym_ppDirective]; AGroup 3 2 syms_5; AGroup 10768 5 syms_150;
     AGroup 10766 38 syms_223]);
   (279840, 4, [AGroup 5 1 [sym_ppDirective]; AGroup 3 2 syms_5; AGroup 10848 5 syms_150;
     AGroup 10846 38 syms_223]);
   (279895, 4, [AGroup 5 1 [sym_ppDirective]; AGroup 3 2 syms_5; AGroup 10828 5 syms_150;
     AGroup 10826 38 syms_223]);
   (279950, 4, [AGroup 5 1 [sym_ppDirective]; AGroup 3 2 syms_5; AGroup 10794 5 syms_150;
     AGroup 10792 38 syms_218]);
   (280005, 4, [AGroup 5 1 [sym_ppDirective]; AGroup 3 2 syms_5; AGroup 10776 5 syms_150;
     AGroup 10774 38 syms_218]);
   (280060, 4, [AGroup 5 1 [sym_ppDirective]; AGroup 3 2 syms_5; AGroup 10892 5 syms_150;
     AGroup 10890 38 syms_218]);
   (280115, 4, [AGroup 5 1 [sym_ppDirective]; AGroup 3 2 syms_5; AGroup 10880 5 syms_150;
     AGroup 10878 38 syms_223]);
   (280170, 4, [AGroup 5 1 [sym_ppDirective]; AGroup 3 2 syms_5; AGroup 10712 5 syms_150;
     AGroup 10710 38 syms_223]);
   (280225, 4, [AGroup 5 1 [sym_ppDirective]; AGroup 3 2 syms_5; AGroup 10734 5 syms_150;
     AGroup 10732 38 syms_223]);
   (280280, 4, [AGroup 5 1 [sym_ppDirective]; AGroup 3 2 syms_5; AGroup 10812 5 syms_150;
     AGroup 10810 38 syms_223]);
   (280335, 4, [AGroup 5 1 [sym_ppDirective]; AGroup 3 2 syms_5; AGroup 10734 5 syms_150;
     AGroup 10732 38 syms_223]);
   (280390, 4, [AGroup 5 1 [sym_ppDirective]; AGroup 3 2 syms_5; AGroup 10840 5 syms_150;
     AGroup 10838 38 syms_218]);
   (280445, 4, [AGroup 5 1 [sym_ppDirective]; AGroup 3 2 syms_5; AGroup 10812 5 syms_150;
     AGroup 10810 38 syms_218]);
   (280500, 4, [AGroup 5 1 [sym_ppDirective]; AGroup 3 2 syms_5; AGroup 10742 5 syms_150;
     AGroup 10740 38 syms_223]);
   (280555, 4, [AGroup 5 1 [sym_ppDirective]; AGroup 3 2 syms_5; AGroup 10752 5 syms_150;
     AGroup 10750 38 syms_223]);
   (280610, 4, [AGroup 5 1 [sym_ppDirective]; AGroup 3 2 syms_5; AGroup 10808 5 syms_150;
     AGroup 10806 38 syms_223]);
   (280665, 4, [AGroup 5 1 [sym_ppDirective]; AGroup 3 2 syms_5; AGroup 10762 5 syms_150;
     AGroup 10760 38 syms_223]);
   (280720, 4, [AGroup 5 1 [sym_ppDirective]; AGroup 3 2 syms_5; AGroup 15504 4 syms_25;
     AGroup 15502 39 syms_126]);
   (280775, 4, [AGroup 5 1 [sym_ppDirective]; AGroup 3 2 syms_5; AGroup 17120 4 syms_25;
     AGroup 17118 39 syms_126]);
   (280830, 4, [AGroup 5 1 [sym_ppDirective]; AGroup 3 2 syms_5; AGroup 10912 5 syms_150;
     AGroup 10910 38 syms_218]);
   (280885, 4, [AGroup 5 1 [sym_ppDirective]; AGroup 3 2 syms_5; AGroup 17242 4 syms_25;
     AGroup 17240 39 syms_126]);
   (280940, 4, [AGroup 5 1 [sym_ppDirective]; AGroup 3 2 syms_5; AGroup 17124 4 syms_25;
     AGroup 17122 39 syms_126]);
   (280995, 4, [AGroup 5 1 [sym_ppDirective]; AGroup 3 2 syms_5; AGroup 10742 5 syms_150;
     AGroup 10740 38 syms_218]);
   (281050, 4, [AGroup 5 1 [sym_ppDirective]; AGroup 3 2 syms_5; AGroup 10916 5 syms_150;
     AGroup 10914 37 syms_226]);
   (281104, 4, [AGroup 5 1 [sym_ppDirective]; AGroup 3 2 syms_5; AGroup 10844 5 syms_150;
     AGroup 10842 37 syms_228]);
   (281158, 13, [AGroup 5 1 [sym_ppDirective]; AGroup 18786 1 [sym_kHat]; AGroup 18800 1 [sym_kFdiv];
     AGroup 18802 1 [sym_kAs]; AGroup 18812 1 [sym_kIs]; AGroup 18814 1 [sym_kNot];
     SGroup 5247 1 [sym__exprIsNot]; AGroup 3 2 syms_5; AGroup 18808 2 syms_83;
     AGroup 18796 4 syms_84; AGroup 18810 5 syms_85; AGroup 18798 6 syms_86;
     AGroup 17938 19 syms_229]);
   (281230, 4, [AGroup 5 1 [sym_ppDirective]; AGroup 3 2 syms_5; AGroup 10804 5 syms_150;
     AGroup 10802 37 syms_226]);
   (281284, 4, [AGroup 5 1 [sym_ppDirective]; AGroup 3 2 syms_5; AGroup 10912 5 syms_150;
     AGroup 10910 37 syms_226]);
   (281338, 4, [AGroup 5 1 [sym_ppDirective]; AGroup 3 2 syms_5; AGroup 10852 5 syms_150;
     AGroup 10850 37 syms_230]);
   (281392, 4, [AGroup 5 1 [sym_ppDirective]; AGroup 3 2 syms_5; AGroup 10856 5 syms_150;
     AGroup 10854 37 syms_230]);
   (281446, 4, [AGroup 5 1 [sym_ppDirective]; AGroup 3 2 syms_5; AGroup 10904 5 syms_150;
     AGroup 10902 37 syms_226]);
   (281500, 4, [AGroup 5 1 [sym_ppDirective]; AGroup 3 2 syms_5; AGroup 10820 5 syms_150;
     AGroup 10818 37 syms_226]);
   (281554, 4, [AGroup 5 1 [sym_ppDirective]; AGroup 3 2 syms_5; AGroup 10860 5 syms_150;
     AGroup 10858 37 syms_230]);
   (281608, 4, [AGroup 5 1 [sym_ppDirective]; AGroup 3 2 syms_5; AGroup 10864 5 syms_150;
     AGroup 10862 37 syms_230]);
   (281662, 4, [AGroup 5 1 [sym_ppDirective]; AGroup 3 2 syms_5; AGroup 10868 5 syms_150;
     AGroup 10866 37 syms_230]);
   (281716, 4, [AGroup 5 1 [sym_ppDirective]; AGroup 3 2 syms_5; AGroup 10872 5 syms_150;
     AGroup 10870 37 syms_230]);
   (281770, 4, [AGroup 5 1 [sym_ppDirective]; AGroup 3 2 syms_5; AGroup 10876 5 syms_150;
     AGroup 10874 37 syms_230]);
   (281824, 4, [AGroup 5 1 [sym_ppDirective]; AGroup 3 2 syms_5; AGroup 10884 5 syms_150;
     AGroup 10882 37 syms_230]);
   (281878, 4, [AGroup 5 1 [sym_ppDirective]; AGroup 3 2 syms_5; AGroup 10708 5 syms_150;
     AGroup 10706 37 syms_230]);
   (281932, 4, [AGroup 5 1 [sym_ppDirective]; AGroup 3 2 syms_5; AGroup 10888 5 syms_150;
     AGroup 10886 37 syms_230]);
   (281986, 4, [AGroup 5 1 [sym_ppDirective]; AGroup 3 2 syms_5; AGroup 10892 5 syms_150;
     AGroup 10890 37 syms_230]);
   (282040, 4, [AGroup 5 1 [sym_ppDirective]; AGroup 3 2 syms_5; AGroup 10708 5 syms_150;
     AGroup 10706 37 syms_226]);
   (282094, 4, [AGroup 5 1 [sym_ppDirective]; AGroup 3 2 syms_5; AGroup 10896 5 syms_150;
     AGroup 10894 37 syms_230]);
   (282148, 4, [AGroup 5 1 [sym_ppDirective]; AGroup 3 2 syms_5; AGroup 10900 5 syms_150;
     AGroup 10898 37 syms_230]);
   (282202, 4, [AGroup 5 1 [sym_ppDirective]; AGroup 3 2 syms_5; AGroup 10904 5 syms_150;
     AGroup 10902 37 syms_230]);
   (282256, 5, [AGroup 5 1 [sym_ppDirective]; AGroup 18848 1 [sym_kElse]; AGroup 3 2 syms_5;
     AGroup 10722 5 syms_150; AGroup 10720 36 syms_231]);
   (282312, 4, [AGroup 5 1 [sym_ppDirective]; AGroup 3 2 syms_5; AGroup 10908 5 syms_150;
     AGroup 10906 37 syms_230]);
   (282366, 4, [AGroup 5 1 [sym_ppDirective]; AGroup 3 2 syms_5; AGroup 10912 5 syms_150;
     AGroup 10910 37 syms_230]);
   (282420, 4, [AGroup 5 1 [sym_ppDirective]; AGroup 3 2 syms_5; AGroup 10808 5 syms_150;
     AGroup 10806 37 syms_226]);
   (282474, 4, [AGroup 5 1 [sym_ppDirective]; AGroup 3 2 syms_5; AGroup 10916 5 syms_150;
     AGroup 10914 37 syms_230]);
   (282528, 4, [AGroup 5 1 [sym_ppDirective]; AGroup 3 2 syms_5; AGroup 10768 5 syms_150;
     AGroup 10766 37 syms_230]);
   (282582, 4, [AGroup 5 1 [sym_ppDirective]; AGroup 3 2 syms_5; AGroup 10848 5 syms_150;
     AGroup 10846 37 syms_230]);
   (282636, 4, [AGroup 5 1 [sym_ppDirective]; AGroup 3 2 syms_5; AGroup 10828 5 syms_150;
     AGroup 10826 37 syms_230]);
   (282690, 4, [AGroup 5 1 [sym_ppDirective]; AGroup 3 2 syms_5; AGroup 10880 5 syms_150;
     AGroup 10878 37 syms_230]);
   (282744, 4, [AGroup 5 1 [sym_ppDirective]; AGroup 3 2 syms_5; AGroup 10712 5 syms_150;
     AGroup 10710 37 syms_230]);
   (282798, 4, [AGroup 5 1 [sym_ppDirective]; AGroup 3 2 syms_5; AGroup 10734 5 syms_150;
     AGroup 10732 37 syms_230]);
   (282852, 4, [AGroup 5 1 [sym_ppDirective]; AGroup 3 2 syms_5; AGroup 10734 5 syms_150;
     AGroup 10732 37 syms_230]);
   (282906, 4, [AGroup 5 1 [sym_ppDirective]; AGroup 3 2 syms_5; AGroup 18774 5 syms_150;
     AGroup 18772 37 syms_226]);
   (282960, 5, [AGroup 5 1 [sym_ppDirective]; AGroup 3 2 syms_5; AGroup 18739 2 syms_110;
     AGroup 18720 5 syms_150; AGroup 18718 35 syms_192]);
   (283016, 4, [AGroup 5 1 [sym_ppDirective]; AGroup 3 2 syms_5; AGroup 10888 5 syms_150;
     AGroup 10886 37 syms_226]);
   (283070, 4, [AGroup 5 1 [sym_ppDirective]; AGroup 3 2 syms_5; AGroup 10742 5 syms_150;
     AGroup 10740 37 syms_230]);
   (283124, 4, [AGroup 5 1 [sym_ppDirective]; AGroup 3 2 syms_5; AGroup 10752 5 syms_150;
     AGroup 10750 37 syms_230]);
   (283178, 4, [AGroup 5 1 [sym_ppDirective]; AGroup 3 2 syms_5; AGroup 10762 5 syms_150;
     AGroup 10760 37 syms_230]);
   (283232, 4, [AGroup 5 1 [sym_ppDirective]; AGroup 3 2 syms_5; AGroup 10776 5 syms_150;
     AGroup 10774 37 syms_230]);
   (283286, 4, [AGroup 5 1 [sym_ppDirective]; AGroup 3 2 syms_5; AGroup 10780 5 syms_150;
     AGroup 10778 37 syms_230]);
   (283340, 4, [AGroup 5 1 [sym_ppDirective]; AGroup 3 2 syms_5; AGroup 10786 5 syms_150;
     AGroup 10784 37 syms_230]);
   (283394, 4, [AGroup 5 1 [sym_ppDirective]; AGroup 3 2 syms_5; AGroup 10794 5 syms_150;
     AGroup 10792 37 syms_230]);
   (283448, 5, [AGroup 5 1 [sym_ppDirective]; AGroup 18850 1 [sym_kElse]; AGroup 3 2 syms_5;
     AGroup 10722 5 syms_150; AGroup 10720 36 syms_231]);
   (283504, 4, [AGroup 5 1 [sym_ppDirective]; AGroup 3 2 syms_5; AGroup 10804 5 syms_150;
     AGroup 10802 37 syms_230]);
   (283558, 4, [AGroup 5 1 [sym_ppDirective]; AGroup 3 2 syms_5; AGroup 10808 5 syms_150;
     AGroup 10806 37 syms_230]);
   (283612, 4, [AGroup 5 1 [sym_ppDirective]; AGroup 3 2 syms_5; AGroup 10812 5 syms_150;
     AGroup 10810 37 syms_230]);
   (283666, 4, [AGroup 5 1 [sym_ppDirective]; AGroup 3 2 syms_5; AGroup 10812 5 syms_150;
     AGroup 10810 37 syms_226]);
   (283720, 4, [AGroup 5 1 [sym_ppDirective]; AGroup 3 2 syms_5; AGroup 10722 5 syms_150;
     AGroup 10720 37 syms_230]);
   (283774, 5, [AGroup 5 1 [sym_ppDirective]; AGroup 18852 1 [sym_kElse]; AGroup 3 2 syms_5;
     AGroup 10722 5 syms_150; AGroup 10720 36 syms_232]);
   (283830, 4, [AGroup 5 1 [sym_ppDirective]; AGroup 3 2 syms_5; AGroup 10892 5 syms_150;
     AGroup 10890 37 syms_226]);
   (283884, 4, [AGroup 5 1 [sym_ppDirective]; AGroup 3 2 syms_5; AGroup 10820 5 syms_150;
     AGroup 10818 37 syms_230]);
   (283938, 4, [AGroup 5 1 [sym_ppDirective]; AGroup 3 2 syms_5; AGroup 10896 5 syms_150;
     AGroup 10894 37 syms_226]);
   (283992, 4, [AGroup 5 1 [sym_ppDirective]; AGroup 3 2 syms_5; AGroup 10742 5 syms_150;
     AGroup 10740 37 syms_226]);
   (284046, 5, [AGroup 5 1 [sym_ppDirective]; AGroup 18854 1 [sym_kElse]; AGroup 3 2 syms_5;
     AGroup 10722 5 syms_150; AGroup 10720 36 syms_232])
  ].

(** States 6059 to 6158. *)
Definition small_runs_6059 : list small_run :=
  [
   (284102, 4, [AGroup 5 1 [sym_ppDirective]; AGroup 3 2 syms_5; AGroup 10752 5 syms_150;
     AGroup 10750 37 syms_226]);
   (284156, 4, [AGroup 5 1 [sym_ppDirective]; AGroup 3 2 syms_5; AGroup 10768 5 syms_150;
     AGroup 10766 37 syms_226]);
   (284210, 4, [AGroup 5 1 [sym_ppDirective]; AGroup 3 2 syms_5; AGroup 10722 5 syms_150;
     AGroup 10720 37 syms_226]);
   (284264, 4, [AGroup 5 1 [sym_ppDirective]; AGroup 3 2 syms_5; AGroup 10762 5 syms_150;
     AGroup 10760 37 syms_226]);
   (284318, 13, [AGroup 5 1 [sym_ppDirective]; AGroup 18786 1 [sym_kHat]; AGroup 18800 1 [sym_kFdiv];
     AGroup 18802 1 [sym_kAs]; AGroup 18812 1 [sym_kIs]; AGroup 18814 1 [sym_kNot];
     SGroup 5247 1 [sym__exprIsNot]; AGroup 3 2 syms_5; AGroup 18808 2 syms_83;
     AGroup 18796 4 syms_84; AGroup 18810 5 syms_85; AGroup 18798 6 syms_86;
     AGroup 17936 19 syms_229]);
   (284390, 4, [AGroup 5 1 [sym_ppDirective]; AGroup 3 2 syms_5; AGroup 10848 5 syms_150;
     AGroup 10846 37 syms_226]);
   (284444, 4, [AGroup 5 1 [sym_ppDirective]; AGroup 3 2 syms_5; AGroup 10828 5 syms_150;
     AGroup 10826 37 syms_226]);
   (284498, 7, [AGroup 5 1 [sym_ppDirective]; AGroup 615 1 [anon_sym_POUND]; AGroup 3 2 syms_5;
     AGroup 18856 2 syms_6; SGroup 6069 3 syms_13; AGroup 15235 7 syms_34;
     AGroup 15233 29 syms_46]);
   (284558, 4, [AGroup 5 1 [sym_ppDirective]; AGroup 3 2 syms_5; AGroup 10852 5 syms_150;
     AGroup 10850 37 syms_228]);
   (284612, 4, [AGroup 5 1 [sym_ppDirective]; AGroup 3 2 syms_5; AGroup 10856 5 syms_150;
     AGroup 10854 37 syms_228]);
   (284666, 7, [AGroup 5 1 [sym_ppDirective]; AGroup 18861 1 [anon_sym_POUND]; AGroup 3 2 syms_5;
     AGroup 18858 2 syms_6; SGroup 6069 3 syms_13; AGroup 15241 7 syms_34;
     AGroup 15239 29 syms_46]);
   (284726, 4, [AGroup 5 1 [sym_ppDirective]; AGroup 3 2 syms_5; AGroup 10860 5 syms_150;
     AGroup 10858 37 syms_228]);
   (284780, 4, [AGroup 5 1 [sym_ppDirective]; AGroup 3 2 syms_5; AGroup 10880 5 syms_150;
     AGroup 10878 37 syms_226]);
   (284834, 4, [AGroup 5 1 [sym_ppDirective]; AGroup 3 2 syms_5; AGroup 10776 5 syms_150;
     AGroup 10774 37 syms_226]);
   (284888, 4, [AGroup 5 1 [sym_ppDirective]; AGroup 3 2 syms_5; AGroup 10864 5 syms_150;
     AGroup 10862 37 syms_228]);
   (284942, 4, [AGroup 5 1 [sym_ppDirective]; AGroup 3 2 syms_5; AGroup 10868 5 syms_150;
     AGroup 10866 37 syms_228]);
   (284996, 4, [AGroup 5 1 [sym_ppDirective]; AGroup 3 2 syms_5; AGroup 10908 5 syms_150;
     AGroup 10906 37 syms_226]);
   (285050, 4, [AGroup 5 1 [sym_ppDirective]; AGroup 3 2 syms_5; AGroup 10876 5 syms_150;
     AGroup 10874 37 syms_228]);
   (285104, 4, [AGroup 5 1 [sym_ppDirective]; AGroup 3 2 syms_5; AGroup 10852 5 syms_150;
     AGroup 10850 37 syms_226]);
   (285158, 4, [AGroup 5 1 [sym_ppDirective]; AGroup 3 2 syms_5; AGroup 10856 5 syms_150;
     AGroup 10854 37 syms_226]);
   (285212, 4, [AGroup 5 1 [sym_ppDirective]; AGroup 3 2 syms_5; AGroup 10780 5 syms_150;
     AGroup 10778 37 syms_226]);
   (285266, 4, [AGroup 5 1 [sym_ppDirective]; AGroup 3 2 syms_5; AGroup 10786 5 syms_150;
     AGroup 10784 37 syms_226]);
   (285320, 4, [AGroup 5 1 [sym_ppDirective]; AGroup 3 2 syms_5; AGroup 10712 5 syms_150;
     AGroup 10710 37 syms_226]);
   (285374, 4, [AGroup 5 1 [sym_ppDirective]; AGroup 3 2 syms_5; AGroup 10900 5 syms_150;
     AGroup 10898 37 syms_226]);
   (285428, 4, [AGroup 5 1 [sym_ppDirective]; AGroup 3 2 syms_5; AGroup 10884 5 syms_150;
     AGroup 10882 37 syms_228]);
   (285482, 4, [AGroup 5 1 [sym_ppDirective]; AGroup 3 2 syms_5; AGroup 10708 5 syms_150;
     AGroup 10706 37 syms_228]);
   (285536, 4, [AGroup 5 1 [sym_ppDirective]; AGroup 3 2 syms_5; AGroup 10734 5 syms_150;
     AGroup 10732 37 syms_226]);
   (285590, 4, [AGroup 5 1 [sym_ppDirective]; AGroup 3 2 syms_5; AGroup 10888 5 syms_150;
     AGroup 10886 37 syms_228]);
   (285644, 4, [AGroup 5 1 [sym_ppDirective]; AGroup 3 2 syms_5; AGroup 10892 5 syms_150;
     AGroup 10890 37 syms_228]);
   (285698, 4, [AGroup 5 1 [sym_ppDirective]; AGroup 3 2 syms_5; AGroup 10896 5 syms_150;
     AGroup 10894 37 syms_228]);
   (285752, 4, [AGroup 5 1 [sym_ppDirective]; AGroup 3 2 syms_5; AGroup 10900 5 syms_150;
     AGroup 10898 37 syms_228]);
   (285806, 4, [AGroup 5 1 [sym_ppDirective]; AGroup 3 2 syms_5; AGroup 10904 5 syms_150;
     AGroup 10902 37 syms_228]);
   (285860, 4, [AGroup 5 1 [sym_ppDirective]; AGroup 3 2 syms_5; AGroup 10908 5 syms_150;
     AGroup 10906 37 syms_228]);
   (285914, 4, [AGroup 5 1 [sym_ppDirective]; AGroup 3 2 syms_5; AGroup 10860 5 syms_150;
     AGroup 10858 37 syms_226]);
   (285968, 4, [AGroup 5 1 [sym_ppDirective]; AGroup 3 2 syms_5; AGroup 10912 5 syms_150;
     AGroup 10910 37 syms_228]);
   (286022, 4, [AGroup 5 1 [sym_ppDirective]; AGroup 3 2 syms_5; AGroup 10916 5 syms_150;
     AGroup 10914 37 syms_228]);
   (286076, 4, [AGroup 5 1 [sym_ppDirective]; AGroup 3 2 syms_5; AGroup 10768 5 syms_150;
     AGroup 10766 37 syms_228]);
   (286130, 4, [AGroup 5 1 [sym_ppDirective]; AGroup 3 2 syms_5; AGroup 10848 5 syms_150;
     AGroup 10846 37 syms_228]);
   (286184, 4, [AGroup 5 1 [sym_ppDirective]; AGroup 3 2 syms_5; AGroup 10828 5 syms_150;
     AGroup 10826 37 syms_228]);
   (286238, 4, [AGroup 5 1 [sym_ppDirective]; AGroup 3 2 syms_5; AGroup 10880 5 syms_150;
     AGroup 10878 37 syms_228]);
   (286292, 4, [AGroup 5 1 [sym_ppDirective]; AGroup 3 2 syms_5; AGroup 10712 5 syms_150;
     AGroup 10710 37 syms_228]);
   (286346, 4, [AGroup 5 1 [sym_ppDirective]; AGroup 3 2 syms_5; AGroup 10734 5 syms_150;
     AGroup 10732 37 syms_228]);
   (286400, 4, [AGroup 5 1 [sym_ppDirective]; AGroup 3 2 syms_5; AGroup 10734 5 syms_150;
     AGroup 10732 37 syms_228]);
   (286454, 4, [AGroup 5 1 [sym_ppDirective]; AGroup 3 2 syms_5; AGroup 18737 5 syms_150;
     AGroup 18735 37 syms_226]);
   (286508, 4, [AGroup 5 1 [sym_ppDirective]; AGroup 3 2 syms_5; AGroup 10742 5 syms_150;
     AGroup 10740 37 syms_228]);
   (286562, 4, [AGroup 5 1 [sym_ppDirective]; AGroup 3 2 syms_5; AGroup 10752 5 syms_150;
     AGroup 10750 37 syms_228]);
   (286616, 4, [AGroup 5 1 [sym_ppDirective]; AGroup 3 2 syms_5; AGroup 10762 5 syms_150;
     AGroup 10760 37 syms_228]);
   (286670, 4, [AGroup 5 1 [sym_ppDirective]; AGroup 3 2 syms_5; AGroup 10776 5 syms_150;
     AGroup 10774 37 syms_228]);
   (286724, 4, [AGroup 5 1 [sym_ppDirective]; AGroup 3 2 syms_5; AGroup 10780 5 syms_150;
     AGroup 10778 37 syms_228]);
   (286778, 4, [AGroup 5 1 [sym_ppDirective]; AGroup 3 2 syms_5; AGroup 10786 5 syms_150;
     AGroup 10784 37 syms_228]);
   (286832, 4, [AGroup 5 1 [sym_ppDirective]; AGroup 3 2 syms_5; AGroup 10794 5 syms_150;
     AGroup 10792 37 syms_228]);
   (286886, 4, [AGroup 5 1 [sym_ppDirective]; AGroup 3 2 syms_5; AGroup 10804 5 syms_150;
     AGroup 10802 37 syms_228]);
   (286940, 4, [AGroup 5 1 [sym_ppDirective]; AGroup 3 2 syms_5; AGroup 10808 5 syms_150;
     AGroup 10806 37 syms_228]);
   (286994, 4, [AGroup 5 1 [sym_ppDirective]; AGroup 3 2 syms_5; AGroup 10812 5 syms_150;
     AGroup 10810 37 syms_228]);
   (287048, 4, [AGroup 5 1 [sym_ppDirective]; AGroup 3 2 syms_5; AGroup 10722 5 syms_150;
     AGroup 10720 37 syms_228]);
   (287102, 6, [AGroup 5 1 [sym_ppDirective]; AGroup 3 2 syms_5; AGroup 18864 2 syms_186;
     SGroup 6114 2 syms_187; AGroup 18703 5 syms_150; AGroup 18701 33 syms_233]);
   (287160, 4, [AGroup 5 1 [sym_ppDirective]; AGroup 3 2 syms_5; AGroup 10864 5 syms_150;
     AGroup 10862 37 syms_226]);
   (287214, 4, [AGroup 5 1 [sym_ppDirective]; AGroup 3 2 syms_5; AGroup 10868 5 syms_150;
     AGroup 10866 37 syms_226]);
   (287268, 6, [AGroup 5 1 [sym_ppDirective]; AGroup 3 2 syms_5; AGroup 18867 2 syms_186;
     SGroup 6117 2 syms_187; AGroup 18703 5 syms_150; AGroup 18701 33 syms_234]);
   (287326, 4, [AGroup 5 1 [sym_ppDirective]; AGroup 3 2 syms_5; AGroup 10872 5 syms_150;
     AGroup 10870 37 syms_226]);
   (287380, 4, [AGroup 5 1 [sym_ppDirective]; AGroup 3 2 syms_5; AGroup 10840 5 syms_150;
     AGroup 10838 37 syms_226]);
   (287434, 4, [AGroup 5 1 [sym_ppDirective]; AGroup 3 2 syms_5; AGroup 10876 5 syms_150;
     AGroup 10874 37 syms_226]);
   (287488, 4, [AGroup 5 1 [sym_ppDirective]; AGroup 3 2 syms_5; AGroup 10840 5 syms_150;
     AGroup 10838 37 syms_230]);
   (287542, 5, [AGroup 5 1 [sym_ppDirective]; AGroup 3 2 syms_5; AGroup 18722 2 syms_110;
     AGroup 18720 5 syms_150; AGroup 18718 35 syms_192]);
   (287598, 4, [AGroup 5 1 [sym_ppDirective]; AGroup 3 2 syms_5; AGroup 9812 5 syms_150;
     AGroup 9810 37 syms_226]);
   (287652, 4, [AGroup 5 1 [sym_ppDirective]; AGroup 3 2 syms_5; AGroup 10820 5 syms_150;
     AGroup 10818 37 syms_228]);
   (287706, 4, [AGroup 5 1 [sym_ppDirective]; AGroup 3 2 syms_5; AGroup 10844 5 syms_150;
     AGroup 10842 37 syms_230]);
   (287760, 6, [AGroup 5 1 [sym_ppDirective]; AGroup 3 2 syms_5; AGroup 18728 2 syms_186;
     AGroup 18731 2 syms_110; AGroup 18720 5 syms_150; AGroup 18718 33 syms_199]);
   (287818, 6, [AGroup 5 1 [sym_ppDirective]; AGroup 3 2 syms_5; AGroup 18870 2 syms_186;
     SGroup 6127 2 syms_187; AGroup 18703 5 syms_150; AGroup 18701 33 syms_235]);
   (287876, 5, [AGroup 5 1 [sym_ppDirective]; AGroup 18873 1 [sym_kElse]; AGroup 3 2 syms_5;
     AGroup 10722 5 syms_150; AGroup 10720 36 syms_231]);
   (287932, 4, [AGroup 5 1 [sym_ppDirective]; AGroup 3 2 syms_5; AGroup 18782 5 syms_150;
     AGroup 18780 37 syms_226]);
   (287986, 4, [AGroup 5 1 [sym_ppDirective]; AGroup 3 2 syms_5; AGroup 10794 5 syms_150;
     AGroup 10792 37 syms_226]);
   (288040, 4, [AGroup 5 1 [sym_ppDirective]; AGroup 3 2 syms_5; AGroup 18778 5 syms_150;
     AGroup 18776 37 syms_226]);
   (288094, 5, [AGroup 5 1 [sym_ppDirective]; AGroup 18875 1 [sym_kElse]; AGroup 3 2 syms_5;
     AGroup 10722 5 syms_150; AGroup 10720 36 syms_232]);
   (288150, 4, [AGroup 5 1 [sym_ppDirective]; AGroup 3 2 syms_5; AGroup 10844 5 syms_150;
     AGroup 10842 37 syms_226]);
   (288204, 4, [AGroup 5 1 [sym_ppDirective]; AGroup 3 2 syms_5; AGroup 10884 5 syms_150;
     AGroup 10882 37 syms_226]);
   (288258, 4, [AGroup 5 1 [sym_ppDirective]; AGroup 3 2 syms_5; AGroup 10734 5 syms_150;
     AGroup 10732 37 syms_226]);
   (288312, 4, [AGroup 5 1 [sym_ppDirective]; AGroup 3 2 syms_5; AGroup 10840 5 syms_150;
     AGroup 10838 37 syms_228]);
   (288366, 4, [AGroup 5 1 [sym_ppDirective]; AGroup 3 2 syms_5; AGroup 10872 5 syms_150;
     AGroup 10870 37 syms_228]);
   (288420, 4, [AGroup 5 1 [sym_ppDirective]; AGroup 3 2 syms_5; AGroup 10848 5 syms_150;
     AGroup 10846 36 syms_232]);
   (288473, 4, [AGroup 5 1 [sym_ppDirective]; AGroup 3 2 syms_5; AGroup 10808 5 syms_150;
     AGroup 10806 36 syms_232]);
   (288526, 28, [AGroup 5 1 [sym_ppDirective]; AGroup 9 1 [anon_sym_LBRACK];
     AGroup 11 1 [aux_sym_ppUsesBlock_token1]; AGroup 13 1 [sym_kGeneric];
     AGroup 15 1 [sym_kOperator]; AGroup 18748 1 [anon_sym_LPAREN]; AGroup 18756 1 [sym_kClass];
     AGroup 18760 1 [sym_kExports]; AGroup 18762 1 [sym_kLabel]; AGroup 18766 1 [sym_kType];
     AGroup 18768 1 [sym_kUses]; AGroup 18877 1 [anon_sym_COLON]; AGroup 18879 1 [sym_kAsm];
     AGroup 18881 1 [sym_kBegin]; SGroup 16 1 [sym__ppIf]; SGroup 5834 1 [sym_blockTr];
     SGroup 6432 1 [sym_declProc]; SGroup 6594 1 [sym_declArgs]; SGroup 9528 1 [sym_asmTr];
     SGroup 10355 1 [sym__declProc]; SGroup 10443 1 [sym__declOperator];
     SGroup 11110 1 [sym_rttiAttributes]; SGroup 11216 1 [aux_sym_rttiAttributes_repeat2];
     AGroup 3 2 syms_5; AGroup 18758 2 syms_65; AGroup 18764 2 syms_66; AGroup 23 4 syms_3;
     SGroup 6953 11 syms_210]);
   (288627, 4, [AGroup 5 1 [sym_ppDirective]; AGroup 3 2 syms_5; AGroup 10900 5 syms_150;
     AGroup 10898 36 syms_232]);
   (288680, 4, [AGroup 5 1 [sym_ppDirective]; AGroup 3 2 syms_5; AGroup 10780 5 syms_150;
     AGroup 10778 36 syms_231]);
   (288733, 4, [AGroup 5 1 [sym_ppDirective]; AGroup 3 2 syms_5; AGroup 10786 5 syms_150;
     AGroup 10784 36 syms_231]);
   (288786, 4, [AGroup 5 1 [sym_ppDirective]; AGroup 3 2 syms_5; AGroup 10844 5 syms_150;
     AGroup 10842 36 syms_231]);
   (288839, 4, [AGroup 5 1 [sym_ppDirective]; AGroup 3 2 syms_5; AGroup 9812 5 syms_150;
     AGroup 9810 36 syms_232]);
   (288892, 4, [AGroup 5 1 [sym_ppDirective]; AGroup 3 2 syms_5; AGroup 10768 5 syms_150;
     AGroup 10766 36 syms_231]);
   (288945, 4, [AGroup 5 1 [sym_ppDirective]; AGroup 3 2 syms_5; AGroup 10868 5 syms_150;
     AGroup 10866 36 syms_231]);
   (288998, 28, [AGroup 5 1 [sym_ppDirective]; AGroup 9 1 [anon_sym_LBRACK];
     AGroup 11 1 [aux_sym_ppUsesBlock_token1]; AGroup 13 1 [sym_kGeneric];
     AGroup 15 1 [sym_kOperator]; AGroup 18748 1 [anon_sym_LPAREN]; AGroup 18756 1 [sym_kClass];
     AGroup 18760 1 [sym_kExports]; AGroup 18762 1 [sym_kLabel]; AGroup 18766 1 [sym_kType];
     AGroup 18768 1 [sym_kUses]; AGroup 18883 1 [anon_sym_COLON]; AGroup 18885 1 [sym_kAsm];
     AGroup 18887 1 [sym_kBegin]; SGroup 16 1 [sym__ppIf]; SGroup 4979 1 [sym_blockTr];
     SGroup 6432 1 [sym_declProc]; SGroup 6533 1 [sym_declArgs]; SGroup 8272 1 [sym_asmTr];
     SGroup 10355 1 [sym__declProc]; SGroup 10443 1 [sym__declOperator];
     SGroup 11110 1 [sym_rttiAttributes]; SGroup 11216 1 [aux_sym_rttiAttributes_repeat2];
     AGroup 3 2 syms_5; AGroup 18758 2 syms_65; AGroup 18764 2 syms_66; AGroup 23 4 syms_3;
     SGroup 6662 11 syms_210]);
   (289099, 28, [AGroup 5 1 [sym_ppDirective]; AGroup 9 1 [anon_sym_LBRACK];
     AGroup 11 1 [aux_sym_ppUsesBlock_token1]; AGroup 13 1 [sym_kGeneric];
     AGroup 15 1 [sym_kOperator]; AGroup 18748 1 [anon_sym_LPAREN]; AGroup 18756 1 [sym_kClass];
     AGroup 18760 1 [sym_kExports]; AGroup 18762 1 [sym_kLabel]; AGroup 18766 1 [sym_kType];
     AGroup 18768 1 [sym_kUses]; AGroup 18889 1 [anon_sym_COLON]; AGroup 18891 1 [sym_kAsm];
     AGroup 18893 1 [sym_kBegin]; SGroup 16 1 [sym__ppIf]; SGroup 5773 1 [sym_blockTr];
     SGroup 6432 1 [sym_declProc]; SGroup 6595 1 [sym_declArgs]; SGroup 9323 1 [sym_asmTr];
     SGroup 10355 1 [sym__declProc]; SGroup 10443 1 [sym__declOperator];
     SGroup 11110 1 [sym_rttiAttributes]; SGroup 11216 1 [aux_sym_rttiAttributes_repeat2];
     AGroup 3 2 syms_5; AGroup 18758 2 syms_65; AGroup 18764 2 syms_66; AGroup 23 4 syms_3;
     SGroup 6956 11 syms_210]);
   (289200, 25, [AGroup 5 1 [sym_ppDirective]; AGroup 13351 1 [aux_sym_ppUsesBlock_token1];
     AGroup 13367 1 [sym_kGeneric]; AGroup 13369 1 [sym_kOperator]; AGroup 13373 1 [sym_kStrict];
     AGroup 13377 1 [sym_kCase]; AGroup 13379 1 [sym_kClass]; AGroup 13391 1 [sym_kProperty];
     AGroup 13395 1 [sym_kType]; AGroup 18724 1 [sym_kEnd]; AGroup 18895 1 [anon_sym_LBRACK];
     SGroup 3 1 [sym__ppIf]; SGroup 6354 1 [sym__visibility]; SGroup 9835 1 [sym__declOperator];
     SGroup 10247 1 [sym__declProc]; SGroup 10878 1 [sym_rttiAttributes];
     SGroup 11027 1 [aux_sym_rttiAttributes_repeat2]; SGroup 14840 1 [sym_declVariant];
     AGroup 3 2 syms_5; AGroup 13381 2 syms_65; AGroup 13393 2 syms_66; SGroup 10512 3 syms_69;
     AGroup 13383 4 syms_3; AGroup 13371 6 syms_70; SGroup 7104 7 syms_236]);
   (289295, 4, [AGroup 5 1 [sym_ppDirective]; AGroup 3 2 syms_5; AGroup 10912 5 syms_150;
     AGroup 10910 36 syms_232]);
   (289348, 28, [AGroup 5 1 [sym_ppDirective]; AGroup 9 1 [anon_sym_LBRACK];
     AGroup 11 1 [aux_sym_ppUsesBlock_token1]; AGroup 13 1 [sym_kGeneric];
     AGroup 15 1 [sym_kOperator]; AGroup 18748 1 [anon_sym_LPAREN]; AGroup 18756 1 [sym_kClass];
     AGroup 18760 1 [sym_kExports]; AGroup 18762 1 [sym_kLabel]; AGroup 18766 1 [sym_kType];
     AGroup 18768 1 [sym_kUses]; AGroup 18897 1 [anon_sym_COLON]; AGroup 18899 1 [sym_kAsm];
     AGroup 18901 1 [sym_kBegin]; SGroup 16 1 [sym__ppIf]; SGroup 4533 1 [sym_blockTr];
     SGroup 6432 1 [sym_declProc]; SGroup 6547 1 [sym_declArgs]; SGroup 8316 1 [sym_asmTr];
     SGroup 10355 1 [sym__declProc]; SGroup 10443 1 [sym__declOperator];
     SGroup 11110 1 [sym_rttiAttributes]; SGroup 11216 1 [aux_sym_rttiAttributes_repeat2];
     AGroup 3 2 syms_5; AGroup 18758 2 syms_65; AGroup 18764 2 syms_66; AGroup 23 4 syms_3;
     SGroup 6728 11 syms_210]);
   (289449, 4, [AGroup 5 1 [sym_ppDirective]; AGroup 3 2 syms_5; AGroup 10892 5 syms_150;
     AGroup 10890 36 syms_232]);
   (289502, 4, [AGroup 5 1 [sym_ppDirective]; AGroup 3 2 syms_5; AGroup 10812 5 syms_150;
     AGroup 10810 36 syms_232]);
   (289555, 4, [AGroup 5 1 [sym_ppDirective]; AGroup 3 2 syms_5; AGroup 10820 5 syms_150;
     AGroup 10818 36 syms_231]);
   (289608, 4, [AGroup 5 1 [sym_ppDirective]; AGroup 3 2 syms_5; AGroup 18782 5 syms_150;
     AGroup 18780 36 syms_231]);
   (289661, 28, [AGroup 5 1 [sym_ppDirective]; AGroup 9 1 [anon_sym_LBRACK];
     AGroup 11 1 [aux_sym_ppUsesBlock_token1]; AGroup 13 1 [sym_kGeneric];
     AGroup 15 1 [sym_kOperator]; AGroup 18748 1 [anon_sym_LPAREN]; AGroup 18756 1 [sym_kClass];
     AGroup 18760 1 [sym_kExports]; AGroup 18762 1 [sym_kLabel]; AGroup 18766 1 [sym_kType];
     AGroup 18768 1 [sym_kUses]; AGroup 18903 1 [anon_sym_COLON]; AGroup 18905 1 [sym_kAsm];
     AGroup 18907 1 [sym_kBegin]; SGroup 16 1 [sym__ppIf]; SGroup 5533 1 [sym_blockTr];
     SGroup 6432 1 [sym_declProc]; SGroup 6462 1 [sym_declArgs]; SGroup 8977 1 [sym_asmTr];
     SGroup 10355 1 [sym__declProc]; SGroup 10443 1 [sym__declOperator];
     SGroup 11110 1 [sym_rttiAttributes]; SGroup 11216 1 [aux_sym_rttiAttributes_repeat2];
     AGroup 3 2 syms_5; AGroup 18758 2 syms_65; AGroup 18764 2 syms_66; AGroup 23 4 syms_3;
     SGroup 6620 11 syms_210]);
   (289762, 4, [AGroup 5 1 [sym_ppDirective]; AGroup 3 2 syms_5; AGroup 18782 5 syms_150;
     AGroup 18780 36 syms_232])
  ].

(** States 6159 to 6258. *)
Definition small_runs_6159 : list small_run :=
  [
   (289815, 4, [AGroup 5 1 [sym_ppDirective]; AGroup 3 2 syms_5; AGroup 9812 5 syms_150;
     AGroup 9810 36 syms_231]);
   (289868, 28, [AGroup 5 1 [sym_ppDirective]; AGroup 9 1 [anon_sym_LBRACK];
     AGroup 11 1 [aux_sym_ppUsesBlock_token1]; AGroup 13 1 [sym_kGeneric];
     AGroup 15 1 [sym_kOperator]; AGroup 18746 1 [anon_sym_COLON];
     AGroup 18748 1 [anon_sym_LPAREN]; AGroup 18752 1 [sym_kAsm]; AGroup 18754 1 [sym_kBegin];
     AGroup 18756 1 [sym_kClass]; AGroup 18760 1 [sym_kExports]; AGroup 18762 1 [sym_kLabel];
     AGroup 18766 1 [sym_kType]; AGroup 18768 1 [sym_kUses]; SGroup 16 1 [sym__ppIf];
     SGroup 4018 1 [sym_blockTr]; SGroup 6432 1 [sym_declProc]; SGroup 6556 1 [sym_declArgs];
     SGroup 7790 1 [sym_asmTr]; SGroup 10355 1 [sym__declProc];
     SGroup 10443 1 [sym__declOperator]; SGroup 11110 1 [sym_rttiAttributes];
     SGroup 11216 1 [aux_sym_rttiAttributes_repeat2]; AGroup 3 2 syms_5; AGroup 18758 2 syms_65;
     AGroup 18764 2 syms_66; AGroup 23 4 syms_3; SGroup 6938 11 syms_210]);
   (289969, 4, [AGroup 5 1 [sym_ppDirective]; AGroup 3 2 syms_5; AGroup 10876 5 syms_150;
     AGroup 10874 36 syms_232]);
   (290022, 4, [AGroup 5 1 [sym_ppDirective]; AGroup 3 2 syms_5; AGroup 10794 5 syms_150;
     AGroup 10792 36 syms_232]);
   (290075, 4, [AGroup 5 1 [sym_ppDirective]; AGroup 3 2 syms_5; AGroup 10888 5 syms_150;
     AGroup 10886 36 syms_231]);
   (290128, 4, [AGroup 5 1 [sym_ppDirective]; AGroup 3 2 syms_5; AGroup 10860 5 syms_150;
     AGroup 10858 36 syms_231]);
   (290181, 28, [AGroup 5 1 [sym_ppDirective]; AGroup 9 1 [anon_sym_LBRACK];
     AGroup 11 1 [aux_sym_ppUsesBlock_token1]; AGroup 13 1 [sym_kGeneric];
     AGroup 15 1 [sym_kOperator]; AGroup 18748 1 [anon_sym_LPAREN]; AGroup 18756 1 [sym_kClass];
     AGroup 18760 1 [sym_kExports]; AGroup 18762 1 [sym_kLabel]; AGroup 18766 1 [sym_kType];
     AGroup 18768 1 [sym_kUses]; AGroup 18909 1 [anon_sym_COLON]; AGroup 18911 1 [sym_kAsm];
     AGroup 18913 1 [sym_kBegin]; SGroup 16 1 [sym__ppIf]; SGroup 5765 1 [sym_blockTr];
     SGroup 6432 1 [sym_declProc]; SGroup 6521 1 [sym_declArgs]; SGroup 9211 1 [sym_asmTr];
     SGroup 10355 1 [sym__declProc]; SGroup 10443 1 [sym__declOperator];
     SGroup 11110 1 [sym_rttiAttributes]; SGroup 11216 1 [aux_sym_rttiAttributes_repeat2];
     AGroup 3 2 syms_5; AGroup 18758 2 syms_65; AGroup 18764 2 syms_66; AGroup 23 4 syms_3;
     SGroup 6618 11 syms_210]);
   (290282, 6, [AGroup 5 1 [sym_ppDirective]; AGroup 18731 1 [sym_kEnd]; AGroup 3 2 syms_5;
     AGroup 18728 2 syms_186; AGroup 18720 5 syms_150; AGroup 18718 33 syms_199]);
   (290339, 5, [AGroup 5 1 [sym_ppDirective]; AGroup 18915 1 [sym_kElse]; AGroup 3 2 syms_5;
     AGroup 10722 5 syms_150; AGroup 10720 35 syms_192]);
   (290394, 28, [AGroup 5 1 [sym_ppDirective]; AGroup 9 1 [anon_sym_LBRACK];
     AGroup 11 1 [aux_sym_ppUsesBlock_token1]; AGroup 13 1 [sym_kGeneric];
     AGroup 15 1 [sym_kOperator]; AGroup 18748 1 [anon_sym_LPAREN]; AGroup 18756 1 [sym_kClass];
     AGroup 18760 1 [sym_kExports]; AGroup 18762 1 [sym_kLabel]; AGroup 18766 1 [sym_kType];
     AGroup 18768 1 [sym_kUses]; AGroup 18917 1 [anon_sym_COLON]; AGroup 18919 1 [sym_kAsm];
     AGroup 18921 1 [sym_kBegin]; SGroup 16 1 [sym__ppIf]; SGroup 3049 1 [sym_blockTr];
     SGroup 6432 1 [sym_declProc]; SGroup 6478 1 [sym_declArgs]; SGroup 7064 1 [sym_asmTr];
     SGroup 10355 1 [sym__declProc]; SGroup 10443 1 [sym__declOperator];
     SGroup 11110 1 [sym_rttiAttributes]; SGroup 11216 1 [aux_sym_rttiAttributes_repeat2];
     AGroup 3 2 syms_5; AGroup 18758 2 syms_65; AGroup 18764 2 syms_66; AGroup 23 4 syms_3;
     SGroup 6876 11 syms_210]);
   (290495, 4, [AGroup 5 1 [sym_ppDirective]; AGroup 3 2 syms_5; AGroup 10860 5 syms_150;
     AGroup 10858 36 syms_232]);
   (290548, 25, [AGroup 5 1 [sym_ppDirective]; AGroup 13351 1 [aux_sym_ppUsesBlock_token1];
     AGroup 13367 1 [sym_kGeneric]; AGroup 13369 1 [sym_kOperator]; AGroup 13373 1 [sym_kStrict];
     AGroup 13377 1 [sym_kCase]; AGroup 13379 1 [sym_kClass]; AGroup 13391 1 [sym_kProperty];
     AGroup 13395 1 [sym_kType]; AGroup 18726 1 [sym_kEnd]; AGroup 18895 1 [anon_sym_LBRACK];
     SGroup 3 1 [sym__ppIf]; SGroup 6354 1 [sym__visibility]; SGroup 9835 1 [sym__declOperator];
     SGroup 10247 1 [sym__declProc]; SGroup 10878 1 [sym_rttiAttributes];
     SGroup 11027 1 [aux_sym_rttiAttributes_repeat2]; SGroup 14459 1 [sym_declVariant];
     AGroup 3 2 syms_5; AGroup 13381 2 syms_65; AGroup 13393 2 syms_66; SGroup 10513 3 syms_69;
     AGroup 13383 4 syms_3; AGroup 13371 6 syms_70; SGroup 7104 7 syms_236]);
   (290643, 28, [AGroup 5 1 [sym_ppDirective]; AGroup 9 1 [anon_sym_LBRACK];
     AGroup 11 1 [aux_sym_ppUsesBlock_token1]; AGroup 13 1 [sym_kGeneric];
     AGroup 15 1 [sym_kOperator]; AGroup 18748 1 [anon_sym_LPAREN]; AGroup 18756 1 [sym_kClass];
     AGroup 18760 1 [sym_kExports]; AGroup 18762 1 [sym_kLabel]; AGroup 18766 1 [sym_kType];
     AGroup 18768 1 [sym_kUses]; AGroup 18923 1 [anon_sym_COLON]; AGroup 18925 1 [sym_kAsm];
     AGroup 18927 1 [sym_kBegin]; SGroup 16 1 [sym__ppIf]; SGroup 5726 1 [sym_blockTr];
     SGroup 6432 1 [sym_declProc]; SGroup 6464 1 [sym_declArgs]; SGroup 9105 1 [sym_asmTr];
     SGroup 10355 1 [sym__declProc]; SGroup 10443 1 [sym__declOperator];
     SGroup 11110 1 [sym_rttiAttributes]; SGroup 11216 1 [aux_sym_rttiAttributes_repeat2];
     AGroup 3 2 syms_5; AGroup 18758 2 syms_65; AGroup 18764 2 syms_66; AGroup 23 4 syms_3;
     SGroup 6875 11 syms_210]);
   (290744, 4, [AGroup 5 1 [sym_ppDirective]; AGroup 3 2 syms_5; AGroup 10848 5 syms_150;
     AGroup 10846 36 syms_231]);
   (290797, 28, [AGroup 5 1 [sym_ppDirective]; AGroup 9 1 [anon_sym_LBRACK];
     AGroup 11 1 [aux_sym_ppUsesBlock_token1]; AGroup 13 1 [sym_kGeneric];
     AGroup 15 1 [sym_kOperator]; AGroup 18748 1 [anon_sym_LPAREN]; AGroup 18756 1 [sym_kClass];
     AGroup 18760 1 [sym_kExports]; AGroup 18762 1 [sym_kLabel]; AGroup 18766 1 [sym_kType];
     AGroup 18768 1 [sym_kUses]; AGroup 18929 1 [anon_sym_COLON]; AGroup 18931 1 [sym_kAsm];
     AGroup 18933 1 [sym_kBegin]; SGroup 16 1 [sym__ppIf]; SGroup 5560 1 [sym_blockTr];
     SGroup 6432 1 [sym_declProc]; SGroup 6483 1 [sym_declArgs]; SGroup 8928 1 [sym_asmTr];
     SGroup 10355 1 [sym__declProc]; SGroup 10443 1 [sym__declOperator];
     SGroup 11110 1 [sym_rttiAttributes]; SGroup 11216 1 [aux_sym_rttiAttributes_repeat2];
     AGroup 3 2 syms_5; AGroup 18758 2 syms_65; AGroup 18764 2 syms_66; AGroup 23 4 syms_3;
     SGroup 6632 11 syms_210]);
   (290898, 4, [AGroup 5 1 [sym_ppDirective]; AGroup 3 2 syms_5; AGroup 10812 5 syms_150;
     AGroup 10810 36 syms_231]);
   (290951, 4, [AGroup 5 1 [sym_ppDirective]; AGroup 3 2 syms_5; AGroup 10828 5 syms_150;
     AGroup 10826 36 syms_231]);
   (291004, 28, [AGroup 5 1 [sym_ppDirective]; AGroup 9 1 [anon_sym_LBRACK];
     AGroup 11 1 [aux_sym_ppUsesBlock_token1]; AGroup 13 1 [sym_kGeneric];
     AGroup 15 1 [sym_kOperator]; AGroup 18748 1 [anon_sym_LPAREN]; AGroup 18756 1 [sym_kClass];
     AGroup 18760 1 [sym_kExports]; AGroup 18762 1 [sym_kLabel]; AGroup 18766 1 [sym_kType];
     AGroup 18768 1 [sym_kUses]; AGroup 18935 1 [anon_sym_COLON]; AGroup 18937 1 [sym_kAsm];
     AGroup 18939 1 [sym_kBegin]; SGroup 16 1 [sym__ppIf]; SGroup 5721 1 [sym_blockTr];
     SGroup 6432 1 [sym_declProc]; SGroup 6536 1 [sym_declArgs]; SGroup 9249 1 [sym_asmTr];
     SGroup 10355 1 [sym__declProc]; SGroup 10443 1 [sym__declOperator];
     SGroup 11110 1 [sym_rttiAttributes]; SGroup 11216 1 [aux_sym_rttiAttributes_repeat2];
     AGroup 3 2 syms_5; AGroup 18758 2 syms_65; AGroup 18764 2 syms_66; AGroup 23 4 syms_3;
     SGroup 6687 11 syms_210]);
   (291105, 4, [AGroup 5 1 [sym_ppDirective]; AGroup 3 2 syms_5; AGroup 10880 5 syms_150;
     AGroup 10878 36 syms_231]);
   (291158, 7, [AGroup 5 1 [sym_ppDirective]; AGroup 14959 1 [anon_sym_POUND]; AGroup 3 2 syms_5;
     AGroup 18941 2 syms_6; SGroup 6180 3 syms_13; AGroup 15235 4 syms_25;
     AGroup 15233 31 syms_64]);
   (291217, 4, [AGroup 5 1 [sym_ppDirective]; AGroup 3 2 syms_5; AGroup 10912 5 syms_150;
     AGroup 10910 36 syms_231]);
   (291270, 7, [AGroup 5 1 [sym_ppDirective]; AGroup 18946 1 [anon_sym_POUND]; AGroup 3 2 syms_5;
     AGroup 18943 2 syms_6; SGroup 6180 3 syms_13; AGroup 15241 4 syms_25;
     AGroup 15239 31 syms_64]);
   (291329, 4, [AGroup 5 1 [sym_ppDirective]; AGroup 3 2 syms_5; AGroup 10840 5 syms_150;
     AGroup 10838 36 syms_232]);
   (291382, 4, [AGroup 5 1 [sym_ppDirective]; AGroup 3 2 syms_5; AGroup 18782 5 syms_150;
     AGroup 18780 36 syms_237]);
   (291435, 28, [AGroup 5 1 [sym_ppDirective]; AGroup 9 1 [anon_sym_LBRACK];
     AGroup 11 1 [aux_sym_ppUsesBlock_token1]; AGroup 13 1 [sym_kGeneric];
     AGroup 15 1 [sym_kOperator]; AGroup 18748 1 [anon_sym_LPAREN]; AGroup 18756 1 [sym_kClass];
     AGroup 18760 1 [sym_kExports]; AGroup 18762 1 [sym_kLabel]; AGroup 18766 1 [sym_kType];
     AGroup 18768 1 [sym_kUses]; AGroup 18949 1 [anon_sym_COLON]; AGroup 18951 1 [sym_kAsm];
     AGroup 18953 1 [sym_kBegin]; SGroup 16 1 [sym__ppIf]; SGroup 5684 1 [sym_blockTr];
     SGroup 6432 1 [sym_declProc]; SGroup 6485 1 [sym_declArgs]; SGroup 9252 1 [sym_asmTr];
     SGroup 10355 1 [sym__declProc]; SGroup 10443 1 [sym__declOperator];
     SGroup 11110 1 [sym_rttiAttributes]; SGroup 11216 1 [aux_sym_rttiAttributes_repeat2];
     AGroup 3 2 syms_5; AGroup 18758 2 syms_65; AGroup 18764 2 syms_66; AGroup 23 4 syms_3;
     SGroup 6651 11 syms_210]);
   (291536, 4, [AGroup 5 1 [sym_ppDirective]; AGroup 3 2 syms_5; AGroup 10794 5 syms_150;
     AGroup 10792 36 syms_231]);
   (291589, 4, [AGroup 5 1 [sym_ppDirective]; AGroup 3 2 syms_5; AGroup 10908 5 syms_150;
     AGroup 10906 36 syms_231]);
   (291642, 4, [AGroup 5 1 [sym_ppDirective]; AGroup 3 2 syms_5; AGroup 10752 5 syms_150;
     AGroup 10750 36 syms_231]);
   (291695, 6, [AGroup 5 1 [sym_ppDirective]; AGroup 3 2 syms_5; AGroup 18955 2 syms_186;
     SGroup 6187 2 syms_187; AGroup 18703 5 syms_150; AGroup 18701 32 syms_238]);
   (291752, 4, [AGroup 5 1 [sym_ppDirective]; AGroup 3 2 syms_5; AGroup 10888 5 syms_150;
     AGroup 10886 36 syms_232]);
   (291805, 4, [AGroup 5 1 [sym_ppDirective]; AGroup 3 2 syms_5; AGroup 10864 5 syms_150;
     AGroup 10862 36 syms_232]);
   (291858, 28, [AGroup 5 1 [sym_ppDirective]; AGroup 9 1 [anon_sym_LBRACK];
     AGroup 11 1 [aux_sym_ppUsesBlock_token1]; AGroup 13 1 [sym_kGeneric];
     AGroup 15 1 [sym_kOperator]; AGroup 18748 1 [anon_sym_LPAREN]; AGroup 18756 1 [sym_kClass];
     AGroup 18760 1 [sym_kExports]; AGroup 18762 1 [sym_kLabel]; AGroup 18766 1 [sym_kType];
     AGroup 18768 1 [sym_kUses]; AGroup 18958 1 [anon_sym_COLON]; AGroup 18960 1 [sym_kAsm];
     AGroup 18962 1 [sym_kBegin]; SGroup 16 1 [sym__ppIf]; SGroup 4412 1 [sym_blockTr];
     SGroup 6432 1 [sym_declProc]; SGroup 6582 1 [sym_declArgs]; SGroup 8203 1 [sym_asmTr];
     SGroup 10355 1 [sym__declProc]; SGroup 10443 1 [sym__declOperator];
     SGroup 11110 1 [sym_rttiAttributes]; SGroup 11216 1 [aux_sym_rttiAttributes_repeat2];
     AGroup 3 2 syms_5; AGroup 18758 2 syms_65; AGroup 18764 2 syms_66; AGroup 23 4 syms_3;
     SGroup 6759 11 syms_210]);
   (291959, 25, [AGroup 5 1 [sym_ppDirective]; AGroup 13351 1 [aux_sym_ppUsesBlock_token1];
     AGroup 13367 1 [sym_kGeneric]; AGroup 13369 1 [sym_kOperator]; AGroup 13373 1 [sym_kStrict];
     AGroup 13377 1 [sym_kCase]; AGroup 13379 1 [sym_kClass]; AGroup 13391 1 [sym_kProperty];
     AGroup 13395 1 [sym_kType]; AGroup 18741 1 [sym_kEnd]; AGroup 18895 1 [anon_sym_LBRACK];
     SGroup 3 1 [sym__ppIf]; SGroup 6354 1 [sym__visibility]; SGroup 9835 1 [sym__declOperator];
     SGroup 10247 1 [sym__declProc]; SGroup 10878 1 [sym_rttiAttributes];
     SGroup 11027 1 [aux_sym_rttiAttributes_repeat2]; SGroup 15726 1 [sym_declVariant];
     AGroup 3 2 syms_5; AGroup 13381 2 syms_65; AGroup 13393 2 syms_66; SGroup 10508 3 syms_69;
     AGroup 13383 4 syms_3; AGroup 13371 6 syms_70; SGroup 7104 7 syms_236]);
   (292054, 28, [AGroup 5 1 [sym_ppDirective]; AGroup 9 1 [anon_sym_LBRACK];
     AGroup 11 1 [aux_sym_ppUsesBlock_token1]; AGroup 13 1 [sym_kGeneric];
     AGroup 15 1 [sym_kOperator]; AGroup 18748 1 [anon_sym_LPAREN]; AGroup 18756 1 [sym_kClass];
     AGroup 18760 1 [sym_kExports]; AGroup 18762 1 [sym_kLabel]; AGroup 18766 1 [sym_kType];
     AGroup 18768 1 [sym_kUses]; AGroup 18964 1 [anon_sym_COLON]; AGroup 18966 1 [sym_kAsm];
     AGroup 18968 1 [sym_kBegin]; SGroup 16 1 [sym__ppIf]; SGroup 3558 1 [sym_blockTr];
     SGroup 6432 1 [sym_declProc]; SGroup 6493 1 [sym_declArgs]; SGroup 7626 1 [sym_asmTr];
     SGroup 10355 1 [sym__declProc]; SGroup 10443 1 [sym__declOperator];
     SGroup 11110 1 [sym_rttiAttributes]; SGroup 11216 1 [aux_sym_rttiAttributes_repeat2];
     AGroup 3 2 syms_5; AGroup 18758 2 syms_65; AGroup 18764 2 syms_66; AGroup 23 4 syms_3;
     SGroup 6806 11 syms_210]);
   (292155, 28, [AGroup 5 1 [sym_ppDirective]; AGroup 9 1 [anon_sym_LBRACK];
     AGroup 11 1 [aux_sym_ppUsesBlock_token1]; AGroup 13 1 [sym_kGeneric];
     AGroup 15 1 [sym_kOperator]; AGroup 18748 1 [anon_sym_LPAREN]; AGroup 18756 1 [sym_kClass];
     AGroup 18760 1 [sym_kExports]; AGroup 18762 1 [sym_kLabel]; AGroup 18766 1 [sym_kType];
     AGroup 18768 1 [sym_kUses]; AGroup 18970 1 [anon_sym_COLON]; AGroup 18972 1 [sym_kAsm];
     AGroup 18974 1 [sym_kBegin]; SGroup 16 1 [sym__ppIf]; SGroup 3967 1 [sym_blockTr];
     SGroup 6432 1 [sym_declProc]; SGroup 6555 1 [sym_declArgs]; SGroup 7867 1 [sym_asmTr];
     SGroup 10355 1 [sym__declProc]; SGroup 10443 1 [sym__declOperator];
     SGroup 11110 1 [sym_rttiAttributes]; SGroup 11216 1 [aux_sym_rttiAttributes_repeat2];
     AGroup 3 2 syms_5; AGroup 18758 2 syms_65; AGroup 18764 2 syms_66; AGroup 23 4 syms_3;
     SGroup 6773 11 syms_210]);
   (292256, 4, [AGroup 5 1 [sym_ppDirective]; AGroup 3 2 syms_5; AGroup 18778 5 syms_150;
     AGroup 18776 36 syms_232]);
   (292309, 4, [AGroup 5 1 [sym_ppDirective]; AGroup 3 2 syms_5; AGroup 10892 5 syms_150;
     AGroup 10890 36 syms_231]);
   (292362, 4, [AGroup 5 1 [sym_ppDirective]; AGroup 3 2 syms_5; AGroup 10734 5 syms_150;
     AGroup 10732 36 syms_231]);
   (292415, 4, [AGroup 5 1 [sym_ppDirective]; AGroup 3 2 syms_5; AGroup 10896 5 syms_150;
     AGroup 10894 36 syms_231]);
   (292468, 28, [AGroup 5 1 [sym_ppDirective]; AGroup 9 1 [anon_sym_LBRACK];
     AGroup 11 1 [aux_sym_ppUsesBlock_token1]; AGroup 13 1 [sym_kGeneric];
     AGroup 15 1 [sym_kOperator]; AGroup 18748 1 [anon_sym_LPAREN]; AGroup 18756 1 [sym_kClass];
     AGroup 18760 1 [sym_kExports]; AGroup 18762 1 [sym_kLabel]; AGroup 18766 1 [sym_kType];
     AGroup 18768 1 [sym_kUses]; AGroup 18976 1 [anon_sym_COLON]; AGroup 18978 1 [sym_kAsm];
     AGroup 18980 1 [sym_kBegin]; SGroup 16 1 [sym__ppIf]; SGroup 5570 1 [sym_blockTr];
     SGroup 6432 1 [sym_declProc]; SGroup 6488 1 [sym_declArgs]; SGroup 8717 1 [sym_asmTr];
     SGroup 10355 1 [sym__declProc]; SGroup 10443 1 [sym__declOperator];
     SGroup 11110 1 [sym_rttiAttributes]; SGroup 11216 1 [aux_sym_rttiAttributes_repeat2];
     AGroup 3 2 syms_5; AGroup 18758 2 syms_65; AGroup 18764 2 syms_66; AGroup 23 4 syms_3;
     SGroup 6984 11 syms_210]);
   (292569, 4, [AGroup 5 1 [sym_ppDirective]; AGroup 3 2 syms_5; AGroup 10734 5 syms_150;
     AGroup 10732 36 syms_231]);
   (292622, 28, [AGroup 5 1 [sym_ppDirective]; AGroup 9 1 [anon_sym_LBRACK];
     AGroup 11 1 [aux_sym_ppUsesBlock_token1]; AGroup 13 1 [sym_kGeneric];
     AGroup 15 1 [sym_kOperator]; AGroup 18748 1 [anon_sym_LPAREN]; AGroup 18756 1 [sym_kClass];
     AGroup 18760 1 [sym_kExports]; AGroup 18762 1 [sym_kLabel]; AGroup 18766 1 [sym_kType];
     AGroup 18768 1 [sym_kUses]; AGroup 18982 1 [anon_sym_COLON]; AGroup 18984 1 [sym_kAsm];
     AGroup 18986 1 [sym_kBegin]; SGroup 16 1 [sym__ppIf]; SGroup 4073 1 [sym_blockTr];
     SGroup 6432 1 [sym_declProc]; SGroup 6510 1 [sym_declArgs]; SGroup 8155 1 [sym_asmTr];
     SGroup 10355 1 [sym__declProc]; SGroup 10443 1 [sym__declOperator];
     SGroup 11110 1 [sym_rttiAttributes]; SGroup 11216 1 [aux_sym_rttiAttributes_repeat2];
     AGroup 3 2 syms_5; AGroup 18758 2 syms_65; AGroup 18764 2 syms_66; AGroup 23 4 syms_3;
     SGroup 6970 11 syms_210]);
   (292723, 23, [AGroup 5 1 [sym_ppDirective]; AGroup 9 1 [anon_sym_LBRACK];
     AGroup 11 1 [aux_sym_ppUsesBlock_token1]; AGroup 13 1 [sym_kGeneric];
     AGroup 15 1 [sym_kOperator]; AGroup 18988 1 [sym_kBegin]; AGroup 18991 1 [sym_kClass];
     AGroup 18997 1 [sym_kExports]; AGroup 18999 1 [sym_kLabel]; AGroup 19003 1 [sym_kType];
     AGroup 19005 1 [sym_kUses]; SGroup 22 1 [sym__ppIf]; SGroup 6426 1 [sym_declProc];
     SGroup 10348 1 [sym__declProc]; SGroup 10443 1 [sym__declOperator];
     SGroup 11110 1 [sym_rttiAttributes]; SGroup 11216 1 [aux_sym_rttiAttributes_repeat2];
     AGroup 3 2 syms_5; AGroup 18993 2 syms_65; AGroup 19001 2 syms_66; AGroup 23 4 syms_3;
     AGroup 18995 5 syms_60; SGroup 6314 12 syms_239]);
   (292814, 4, [AGroup 5 1 [sym_ppDirective]; AGroup 3 2 syms_5; AGroup 10840 5 syms_150;
     AGroup 10838 36 syms_240]);
   (292867, 4, [AGroup 5 1 [sym_ppDirective]; AGroup 3 2 syms_5; AGroup 10762 5 syms_150;
     AGroup 10760 36 syms_231]);
   (292920, 28, [AGroup 5 1 [sym_ppDirective]; AGroup 9 1 [anon_sym_LBRACK];
     AGroup 11 1 [aux_sym_ppUsesBlock_token1]; AGroup 13 1 [sym_kGeneric];
     AGroup 15 1 [sym_kOperator]; AGroup 18748 1 [anon_sym_LPAREN]; AGroup 18756 1 [sym_kClass];
     AGroup 18760 1 [sym_kExports]; AGroup 18762 1 [sym_kLabel]; AGroup 18766 1 [sym_kType];
     AGroup 18768 1 [sym_kUses]; AGroup 19007 1 [anon_sym_COLON]; AGroup 19009 1 [sym_kAsm];
     AGroup 19011 1 [sym_kBegin]; SGroup 16 1 [sym__ppIf]; SGroup 3146 1 [sym_blockTr];
     SGroup 6432 1 [sym_declProc]; SGroup 6505 1 [sym_declArgs]; SGroup 7111 1 [sym_asmTr];
     SGroup 10355 1 [sym__declProc]; SGroup 10443 1 [sym__declOperator];
     SGroup 11110 1 [sym_rttiAttributes]; SGroup 11216 1 [aux_sym_rttiAttributes_repeat2];
     AGroup 3 2 syms_5; AGroup 18758 2 syms_65; AGroup 18764 2 syms_66; AGroup 23 4 syms_3;
     SGroup 6952 11 syms_210]);
   (293021, 4, [AGroup 5 1 [sym_ppDirective]; AGroup 3 2 syms_5; AGroup 10868 5 syms_150;
     AGroup 10866 36 syms_232]);
   (293074, 28, [AGroup 5 1 [sym_ppDirective]; AGroup 9 1 [anon_sym_LBRACK];
     AGroup 11 1 [aux_sym_ppUsesBlock_token1]; AGroup 13 1 [sym_kGeneric];
     AGroup 15 1 [sym_kOperator]; AGroup 18748 1 [anon_sym_LPAREN]; AGroup 18756 1 [sym_kClass];
     AGroup 18760 1 [sym_kExports]; AGroup 18762 1 [sym_kLabel]; AGroup 18766 1 [sym_kType];
     AGroup 18768 1 [sym_kUses]; AGroup 19013 1 [anon_sym_COLON]; AGroup 19015 1 [sym_kAsm];
     AGroup 19017 1 [sym_kBegin]; SGroup 16 1 [sym__ppIf]; SGroup 3553 1 [sym_blockTr];
     SGroup 6432 1 [sym_declProc]; SGroup 6513 1 [sym_declArgs]; SGroup 7581 1 [sym_asmTr];
     SGroup 10355 1 [sym__declProc]; SGroup 10443 1 [sym__declOperator];
     SGroup 11110 1 [sym_rttiAttributes]; SGroup 11216 1 [aux_sym_rttiAttributes_repeat2];
     AGroup 3 2 syms_5; AGroup 18758 2 syms_65; AGroup 18764 2 syms_66; AGroup 23 4 syms_3;
     SGroup 6616 11 syms_210]);
   (293175, 4, [AGroup 5 1 [sym_ppDirective]; AGroup 3 2 syms_5; AGroup 10864 5 syms_150;
     AGroup 10862 36 syms_231]);
   (293228, 4, [AGroup 5 1 [sym_ppDirective]; AGroup 3 2 syms_5; AGroup 10712 5 syms_150;
     AGroup 10710 36 syms_231]);
   (293281, 4, [AGroup 5 1 [sym_ppDirective]; AGroup 3 2 syms_5; AGroup 18774 5 syms_150;
     AGroup 18772 36 syms_232]);
   (293334, 4, [AGroup 5 1 [sym_ppDirective]; AGroup 3 2 syms_5; AGroup 10844 5 syms_150;
     AGroup 10842 36 syms_240]);
   (293387, 28, [AGroup 5 1 [sym_ppDirective]; AGroup 9 1 [anon_sym_LBRACK];
     AGroup 11 1 [aux_sym_ppUsesBlock_token1]; AGroup 13 1 [sym_kGeneric];
     AGroup 15 1 [sym_kOperator]; AGroup 18748 1 [anon_sym_LPAREN]; AGroup 18756 1 [sym_kClass];
     AGroup 18760 1 [sym_kExports]; AGroup 18762 1 [sym_kLabel]; AGroup 18766 1 [sym_kType];
     AGroup 18768 1 [sym_kUses]; AGroup 19019 1 [anon_sym_COLON]; AGroup 19021 1 [sym_kAsm];
     AGroup 19023 1 [sym_kBegin]; SGroup 16 1 [sym__ppIf]; SGroup 5662 1 [sym_blockTr];
     SGroup 6432 1 [sym_declProc]; SGroup 6518 1 [sym_declArgs]; SGroup 8670 1 [sym_asmTr];
     SGroup 10355 1 [sym__declProc]; SGroup 10443 1 [sym__declOperator];
     SGroup 11110 1 [sym_rttiAttributes]; SGroup 11216 1 [aux_sym_rttiAttributes_repeat2];
     AGroup 3 2 syms_5; AGroup 18758 2 syms_65; AGroup 18764 2 syms_66; AGroup 23 4 syms_3;
     SGroup 6622 11 syms_210]);
   (293488, 5, [AGroup 5 1 [sym_ppDirective]; AGroup 19025 1 [sym_kElse]; AGroup 3 2 syms_5;
     AGroup 10722 5 syms_150; AGroup 10720 35 syms_192]);
   (293543, 4, [AGroup 5 1 [sym_ppDirective]; AGroup 3 2 syms_5; AGroup 10722 5 syms_150;
     AGroup 10720 36 syms_231]);
   (293596, 4, [AGroup 5 1 [sym_ppDirective]; AGroup 3 2 syms_5; AGroup 10722 5 syms_150;
     AGroup 10720 36 syms_240]);
   (293649, 4, [AGroup 5 1 [sym_ppDirective]; AGroup 3 2 syms_5; AGroup 10852 5 syms_150;
     AGroup 10850 36 syms_240]);
   (293702, 4, [AGroup 5 1 [sym_ppDirective]; AGroup 3 2 syms_5; AGroup 10856 5 syms_150;
     AGroup 10854 36 syms_240]);
   (293755, 4, [AGroup 5 1 [sym_ppDirective]; AGroup 3 2 syms_5; AGroup 10900 5 syms_150;
     AGroup 10898 36 syms_231]);
   (293808, 4, [AGroup 5 1 [sym_ppDirective]; AGroup 3 2 syms_5; AGroup 10904 5 syms_150;
     AGroup 10902 36 syms_231]);
   (293861, 28, [AGroup 5 1 [sym_ppDirective]; AGroup 9 1 [anon_sym_LBRACK];
     AGroup 11 1 [aux_sym_ppUsesBlock_token1]; AGroup 13 1 [sym_kGeneric];
     AGroup 15 1 [sym_kOperator]; AGroup 18748 1 [anon_sym_LPAREN]; AGroup 18756 1 [sym_kClass];
     AGroup 18760 1 [sym_kExports]; AGroup 18762 1 [sym_kLabel]; AGroup 18766 1 [sym_kType];
     AGroup 18768 1 [sym_kUses]; AGroup 19027 1 [anon_sym_COLON]; AGroup 19029 1 [sym_kAsm];
     AGroup 19031 1 [sym_kBegin]; SGroup 16 1 [sym__ppIf]; SGroup 3180 1 [sym_blockTr];
     SGroup 6432 1 [sym_declProc]; SGroup 6528 1 [sym_declArgs]; SGroup 7251 1 [sym_asmTr];
     SGroup 10355 1 [sym__declProc]; SGroup 10443 1 [sym__declOperator];
     SGroup 11110 1 [sym_rttiAttributes]; SGroup 11216 1 [aux_sym_rttiAttributes_repeat2];
     AGroup 3 2 syms_5; AGroup 18758 2 syms_65; AGroup 18764 2 syms_66; AGroup 23 4 syms_3;
     SGroup 6647 11 syms_210]);
   (293962, 4, [AGroup 5 1 [sym_ppDirective]; AGroup 3 2 syms_5; AGroup 10860 5 syms_150;
     AGroup 10858 36 syms_240]);
   (294015, 4, [AGroup 5 1 [sym_ppDirective]; AGroup 3 2 syms_5; AGroup 10872 5 syms_150;
     AGroup 10870 36 syms_231]);
   (294068, 4, [AGroup 5 1 [sym_ppDirective]; AGroup 3 2 syms_5; AGroup 10864 5 syms_150;
     AGroup 10862 36 syms_240]);
   (294121, 4, [AGroup 5 1 [sym_ppDirective]; AGroup 3 2 syms_5; AGroup 18778 5 syms_150;
     AGroup 18776 36 syms_231]);
   (294174, 28, [AGroup 5 1 [sym_ppDirective]; AGroup 9 1 [anon_sym_LBRACK];
     AGroup 11 1 [aux_sym_ppUsesBlock_token1]; AGroup 13 1 [sym_kGeneric];
     AGroup 15 1 [sym_kOperator]; AGroup 18748 1 [anon_sym_LPAREN]; AGroup 18756 1 [sym_kClass];
     AGroup 18760 1 [sym_kExports]; AGroup 18762 1 [sym_kLabel]; AGroup 18766 1 [sym_kType];
     AGroup 18768 1 [sym_kUses]; AGroup 19033 1 [anon_sym_COLON]; AGroup 19035 1 [sym_kAsm];
     AGroup 19037 1 [sym_kBegin]; SGroup 16 1 [sym__ppIf]; SGroup 3571 1 [sym_blockTr];
     SGroup 6432 1 [sym_declProc]; SGroup 6486 1 [sym_declArgs]; SGroup 7740 1 [sym_asmTr];
     SGroup 10355 1 [sym__declProc]; SGroup 10443 1 [sym__declOperator];
     SGroup 11110 1 [sym_rttiAttributes]; SGroup 11216 1 [aux_sym_rttiAttributes_repeat2];
     AGroup 3 2 syms_5; AGroup 18758 2 syms_65; AGroup 18764 2 syms_66; AGroup 23 4 syms_3;
     SGroup 6663 11 syms_210]);
   (294275, 4, [AGroup 5 1 [sym_ppDirective]; AGroup 3 2 syms_5; AGroup 18737 5 syms_150;
     AGroup 18735 36 syms_231]);
   (294328, 4, [AGroup 5 1 [sym_ppDirective]; AGroup 3 2 syms_5; AGroup 10868 5 syms_150;
     AGroup 10866 36 syms_240]);
   (294381, 4, [AGroup 5 1 [sym_ppDirective]; AGroup 3 2 syms_5; AGroup 18774 5 syms_150;
     AGroup 18772 36 syms_231]);
   (294434, 4, [AGroup 5 1 [sym_ppDirective]; AGroup 3 2 syms_5; AGroup 10872 5 syms_150;
     AGroup 10870 36 syms_240]);
   (294487, 4, [AGroup 5 1 [sym_ppDirective]; AGroup 3 2 syms_5; AGroup 10876 5 syms_150;
     AGroup 10874 36 syms_240]);
   (294540, 4, [AGroup 5 1 [sym_ppDirective]; AGroup 3 2 syms_5; AGroup 10876 5 syms_150;
     AGroup 10874 36 syms_231]);
   (294593, 5, [AGroup 5 1 [sym_ppDirective]; AGroup 18739 1 [sym_kUntil]; AGroup 3 2 syms_5;
     AGroup 18720 5 syms_150; AGroup 18718 35 syms_192]);
   (294648, 4, [AGroup 5 1 [sym_ppDirective]; AGroup 3 2 syms_5; AGroup 10884 5 syms_150;
     AGroup 10882 36 syms_231]);
   (294701, 4, [AGroup 5 1 [sym_ppDirective]; AGroup 3 2 syms_5; AGroup 10708 5 syms_150;
     AGroup 10706 36 syms_231]);
   (294754, 28, [AGroup 5 1 [sym_ppDirective]; AGroup 9 1 [anon_sym_LBRACK];
     AGroup 11 1 [aux_sym_ppUsesBlock_token1]; AGroup 13 1 [sym_kGeneric];
     AGroup 15 1 [sym_kOperator]; AGroup 18748 1 [anon_sym_LPAREN]; AGroup 18756 1 [sym_kClass];
     AGroup 18760 1 [sym_kExports]; AGroup 18762 1 [sym_kLabel]; AGroup 18766 1 [sym_kType];
     AGroup 18768 1 [sym_kUses]; AGroup 18986 1 [sym_kBegin]; AGroup 19039 1 [anon_sym_COLON];
     AGroup 19041 1 [sym_kAsm]; SGroup 16 1 [sym__ppIf]; SGroup 5938 1 [sym_blockTr];
     SGroup 5949 1 [sym_asmTr]; SGroup 6432 1 [sym_declProc]; SGroup 6535 1 [sym_declArgs];
     SGroup 10355 1 [sym__declProc]; SGroup 10443 1 [sym__declOperator];
     SGroup 11110 1 [sym_rttiAttributes]; SGroup 11216 1 [aux_sym_rttiAttributes_repeat2];
     AGroup 3 2 syms_5; AGroup 18758 2 syms_65; AGroup 18764 2 syms_66; AGroup 23 4 syms_3;
     SGroup 6674 11 syms_210]);
   (294855, 4, [AGroup 5 1 [sym_ppDirective]; AGroup 3 2 syms_5; AGroup 10884 5 syms_150;
     AGroup 10882 36 syms_240]);
   (294908, 4, [AGroup 5 1 [sym_ppDirective]; AGroup 3 2 syms_5; AGroup 10708 5 syms_150;
     AGroup 10706 36 syms_240]);
   (294961, 4, [AGroup 5 1 [sym_ppDirective]; AGroup 3 2 syms_5; AGroup 10904 5 syms_150;
     AGroup 10902 36 syms_232]);
   (295014, 4, [AGroup 5 1 [sym_ppDirective]; AGroup 3 2 syms_5; AGroup 10852 5 syms_150;
     AGroup 10850 36 syms_231]);
   (295067, 25, [AGroup 5 1 [sym_ppDirective]; AGroup 13351 1 [aux_sym_ppUsesBlock_token1];
     AGroup 13367 1 [sym_kGeneric]; AGroup 13369 1 [sym_kOperator]; AGroup 13373 1 [sym_kStrict];
     AGroup 13377 1 [sym_kCase]; AGroup 13379 1 [sym_kClass]; AGroup 13391 1 [sym_kProperty];
     AGroup 13395 1 [sym_kType]; AGroup 18895 1 [anon_sym_LBRACK]; AGroup 19043 1 [sym_kEnd];
     SGroup 3 1 [sym__ppIf]; SGroup 6354 1 [sym__visibility]; SGroup 9835 1 [sym__declOperator];
     SGroup 10247 1 [sym__declProc]; SGroup 10878 1 [sym_rttiAttributes];
     SGroup 11027 1 [aux_sym_rttiAttributes_repeat2]; SGroup 15873 1 [sym_declVariant];
     AGroup 3 2 syms_5; AGroup 13381 2 syms_65; AGroup 13393 2 syms_66; SGroup 10498 3 syms_69;
     AGroup 13383 4 syms_3; AGroup 13371 6 syms_70; SGroup 7104 7 syms_236]);
   (295162, 4, [AGroup 5 1 [sym_ppDirective]; AGroup 3 2 syms_5; AGroup 10888 5 syms_150;
     AGroup 10886 36 syms_240]);
   (295215, 4, [AGroup 5 1 [sym_ppDirective]; AGroup 3 2 syms_5; AGroup 10892 5 syms_150;
     AGroup 10890 36 syms_240]);
   (295268, 4, [AGroup 5 1 [sym_ppDirective]; AGroup 3 2 syms_5; AGroup 10896 5 syms_150;
     AGroup 10894 36 syms_240]);
   (295321, 4, [AGroup 5 1 [sym_ppDirective]; AGroup 3 2 syms_5; AGroup 10900 5 syms_150;
     AGroup 10898 36 syms_240]);
   (295374, 4, [AGroup 5 1 [sym_ppDirective]; AGroup 3 2 syms_5; AGroup 10904 5 syms_150;
     AGroup 10902 36 syms_240]);
   (295427, 28, [AGroup 5 1 [sym_ppDirective]; AGroup 9 1 [anon_sym_LBRACK];
     AGroup 11 1 [aux_sym_ppUsesBlock_token1]; AGroup 13 1 [sym_kGeneric];
     AGroup 15 1 [sym_kOperator]; AGroup 18748 1 [anon_sym_LPAREN]; AGroup 18756 1 [sym_kClass];
     AGroup 18760 1 [sym_kExports]; AGroup 18762 1 [sym_kLabel]; AGroup 18766 1 [sym_kType];
     AGroup 18768 1 [sym_kUses]; AGroup 19045 1 [anon_sym_COLON]; AGroup 19047 1 [sym_kAsm];
     AGroup 19049 1 [sym_kBegin]; SGroup 16 1 [sym__ppIf]; SGroup 3460 1 [sym_blockTr];
     SGroup 6432 1 [sym_declProc]; SGroup 6542 1 [sym_declArgs]; SGroup 7428 1 [sym_asmTr];
     SGroup 10355 1 [sym__declProc]; SGroup 10443 1 [sym__declOperator];
     SGroup 11110 1 [sym_rttiAttributes]; SGroup 11216 1 [aux_sym_rttiAttributes_repeat2];
     AGroup 3 2 syms_5; AGroup 18758 2 syms_65; AGroup 18764 2 syms_66; AGroup 23 4 syms_3;
     SGroup 6708 11 syms_210]);
   (295528, 4, [AGroup 5 1 [sym_ppDirective]; AGroup 3 2 syms_5; AGroup 10908 5 syms_150;
     AGroup 10906 36 syms_240]);
   (295581, 28, [AGroup 5 1 [sym_ppDirective]; AGroup 9 1 [anon_sym_LBRACK];
     AGroup 11 1 [aux_sym_ppUsesBlock_token1]; AGroup 13 1 [sym_kGeneric];
     AGroup 15 1 [sym_kOperator]; AGroup 18748 1 [anon_sym_LPAREN]; AGroup 18756 1 [sym_kClass];
     AGroup 18760 1 [sym_kExports]; AGroup 18762 1 [sym_kLabel]; AGroup 18766 1 [sym_kType];
     AGroup 18768 1 [sym_kUses]; AGroup 19051 1 [anon_sym_COLON]; AGroup 19053 1 [sym_kAsm];
     AGroup 19055 1 [sym_kBegin]; SGroup 16 1 [sym__ppIf]; SGroup 5338 1 [sym_blockTr];
     SGroup 6432 1 [sym_declProc]; SGroup 6538 1 [sym_declArgs]; SGroup 8523 1 [sym_asmTr];
     SGroup 10355 1 [sym__declProc]; SGroup 10443 1 [sym__declOperator];
     SGroup 11110 1 [sym_rttiAttributes]; SGroup 11216 1 [aux_sym_rttiAttributes_repeat2];
     AGroup 3 2 syms_5; AGroup 18758 2 syms_65; AGroup 18764 2 syms_66; AGroup 23 4 syms_3;
     SGroup 6689 11 syms_210]);
   (295682, 7, [AGroup 5 1 [sym_ppDirective]; AGroup 14989 1 [anon_sym_POUND]; AGroup 3 2 syms_5;
     AGroup 19057 2 syms_6; SGroup 6260 3 syms_13; AGroup 15235 4 syms_25;
     AGroup 15233 31 syms_55]);
   (295741, 23, [AGroup 5 1 [sym_ppDirective]; AGroup 19059 1 [anon_sym_LBRACK];
     AGroup 19062 1 [aux_sym_ppUsesBlock_token1]; AGroup 19065 1 [sym_kGeneric];
     AGroup 19068 1 [sym_kOperator]; AGroup 19071 1 [sym_kBegin]; AGroup 19074 1 [sym_kClass];
     AGroup 19085 1 [sym_kExports]; AGroup 19088 1 [sym_kLabel]; AGroup 19094 1 [sym_kType];
     AGroup 19097 1 [sym_kUses]; SGroup 22 1 [sym__ppIf]; SGroup 6426 1 [sym_declProc];
     SGroup 10348 1 [sym__declProc]; SGroup 10443 1 [sym__declOperator];
     SGroup 11110 1 [sym_rttiAttributes]; SGroup 11216 1 [aux_sym_rttiAttributes_repeat2];
     AGroup 3 2 syms_5; AGroup 19077 2 syms_65; AGroup 19091 2 syms_66; AGroup 19080 4 syms_3;
     AGroup 19083 5 syms_60; SGroup 6249 12 syms_239]);
   (295832, 4, [AGroup 5 1 [sym_ppDirective]; AGroup 3 2 syms_5; AGroup 10844 5 syms_150;
     AGroup 10842 36 syms_232]);
   (295885, 28, [AGroup 5 1 [sym_ppDirective]; AGroup 9 1 [anon_sym_LBRACK];
     AGroup 11 1 [aux_sym_ppUsesBlock_token1]; AGroup 13 1 [sym_kGeneric];
     AGroup 15 1 [sym_kOperator]; AGroup 18748 1 [anon_sym_LPAREN]; AGroup 18756 1 [sym_kClass];
     AGroup 18760 1 [sym_kExports]; AGroup 18762 1 [sym_kLabel]; AGroup 18766 1 [sym_kType];
     AGroup 18768 1 [sym_kUses]; AGroup 19100 1 [anon_sym_COLON]; AGroup 19102 1 [sym_kAsm];
     AGroup 19104 1 [sym_kBegin]; SGroup 16 1 [sym__ppIf]; SGroup 3463 1 [sym_blockTr];
     SGroup 6432 1 [sym_declProc]; SGroup 6540 1 [sym_declArgs]; SGroup 7487 1 [sym_asmTr];
     SGroup 10355 1 [sym__declProc]; SGroup 10443 1 [sym__declOperator];
     SGroup 11110 1 [sym_rttiAttributes]; SGroup 11216 1 [aux_sym_rttiAttributes_repeat2];
     AGroup 3 2 syms_5; AGroup 18758 2 syms_65; AGroup 18764 2 syms_66; AGroup 23 4 syms_3;
     SGroup 6700 11 syms_210]);
   (295986, 28, [AGroup 5 1 [sym_ppDirective]; AGroup 9 1 [anon_sym_LBRACK];
     AGroup 11 1 [aux_sym_ppUsesBlock_token1]; AGroup 13 1 [sym_kGeneric];
     AGroup 15 1 [sym_kOperator]; AGroup 18748 1 [anon_sym_LPAREN]; AGroup 18756 1 [sym_kClass];
     AGroup 18760 1 [sym_kExports]; AGroup 18762 1 [sym_kLabel]; AGroup 18766 1 [sym_kType];
     AGroup 18768 1 [sym_kUses]; AGroup 19106 1 [anon_sym_COLON]; AGroup 19108 1 [sym_kAsm];
     AGroup 19110 1 [sym_kBegin]; SGroup 16 1 [sym__ppIf]; SGroup 3353 1 [sym_blockTr];
     SGroup 6432 1 [sym_declProc]; SGroup 6543 1 [sym_declArgs]; SGroup 7228 1 [sym_asmTr];
     SGroup 10355 1 [sym__declProc]; SGroup 10443 1 [sym__declOperator];
     SGroup 11110 1 [sym_rttiAttributes]; SGroup 11216 1 [aux_sym_rttiAttributes_repeat2];
     AGroup 3 2 syms_5; AGroup 18758 2 syms_65; AGroup 18764 2 syms_66; AGroup 23 4 syms_3;
     SGroup 6715 11 syms_210]);
   (296087, 4, [AGroup 5 1 [sym_ppDirective]; AGroup 3 2 syms_5; AGroup 10916 5 syms_150;
     AGroup 10914 36 syms_240]);
   (296140, 4, [AGroup 5 1 [sym_ppDirective]; AGroup 3 2 syms_5; AGroup 10768 5 syms_150;
     AGroup 10766 36 syms_240]);
   (296193, 4, [AGroup 5 1 [sym_ppDirective]; AGroup 3 2 syms_5; AGroup 10848 5 syms_150;
     AGroup 10846 36 syms_240]);
   (296246, 4, [AGroup 5 1 [sym_ppDirective]; AGroup 3 2 syms_5; AGroup 10828 5 syms_150;
     AGroup 10826 36 syms_240]);
   (296299, 6, [AGroup 5 1 [sym_ppDirective]; AGroup 3 2 syms_5; AGroup 19112 2 syms_186;
     SGroup 6257 2 syms_187; AGroup 18703 5 syms_150; AGroup 18701 32 syms_241]);
   (296356, 28, [AGroup 5 1 [sym_ppDirective]; AGroup 9 1 [anon_sym_LBRACK];
     AGroup 11 1 [aux_sym_ppUsesBlock_token1]; AGroup 13 1 [sym_kGeneric];
     AGroup 15 1 [sym_kOperator]; AGroup 18748 1 [anon_sym_LPAREN]; AGroup 18756 1 [sym_kClass];
     AGroup 18760 1 [sym_kExports]; AGroup 18762 1 [sym_kLabel]; AGroup 18766 1 [sym_kType];
     AGroup 18768 1 [sym_kUses]; AGroup 19115 1 [anon_sym_COLON]; AGroup 19117 1 [sym_kAsm];
     AGroup 19119 1 [sym_kBegin]; SGroup 16 1 [sym__ppIf]; SGroup 5810 1 [sym_blockTr];
     SGroup 6432 1 [sym_declProc]; SGroup 6545 1 [sym_declArgs]; SGroup 9060 1 [sym_asmTr];
     SGroup 10355 1 [sym__declProc]; SGroup 10443 1 [sym__declOperator];
     SGroup 11110 1 [sym_rttiAttributes]; SGroup 11216 1 [aux_sym_rttiAttributes_repeat2];
     AGroup 3 2 syms_5; AGroup 18758 2 syms_65; AGroup 18764 2 syms_66; AGroup 23 4 syms_3;
     SGroup 6727 11 syms_210])
  ].

(** States 6259 to 6358. *)
Definition small_runs_6259 : list small_run :=
  [
   (296457, 4, [AGroup 5 1 [sym_ppDirective]; AGroup 3 2 syms_5; AGroup 10880 5 syms_150;
     AGroup 10878 36 syms_240]);
   (296510, 7, [AGroup 5 1 [sym_ppDirective]; AGroup 19124 1 [anon_sym_POUND]; AGroup 3 2 syms_5;
     AGroup 19121 2 syms_6; SGroup 6260 3 syms_13; AGroup 15241 4 syms_25;
     AGroup 15239 31 syms_55]);
   (296569, 4, [AGroup 5 1 [sym_ppDirective]; AGroup 3 2 syms_5; AGroup 10712 5 syms_150;
     AGroup 10710 36 syms_240]);
   (296622, 4, [AGroup 5 1 [sym_ppDirective]; AGroup 3 2 syms_5; AGroup 10734 5 syms_150;
     AGroup 10732 36 syms_240]);
   (296675, 4, [AGroup 5 1 [sym_ppDirective]; AGroup 3 2 syms_5; AGroup 10734 5 syms_150;
     AGroup 10732 36 syms_240]);
   (296728, 28, [AGroup 5 1 [sym_ppDirective]; AGroup 9 1 [anon_sym_LBRACK];
     AGroup 11 1 [aux_sym_ppUsesBlock_token1]; AGroup 13 1 [sym_kGeneric];
     AGroup 15 1 [sym_kOperator]; AGroup 18748 1 [anon_sym_LPAREN]; AGroup 18756 1 [sym_kClass];
     AGroup 18760 1 [sym_kExports]; AGroup 18762 1 [sym_kLabel]; AGroup 18766 1 [sym_kType];
     AGroup 18768 1 [sym_kUses]; AGroup 19127 1 [anon_sym_COLON]; AGroup 19129 1 [sym_kAsm];
     AGroup 19131 1 [sym_kBegin]; SGroup 16 1 [sym__ppIf]; SGroup 3566 1 [sym_blockTr];
     SGroup 6432 1 [sym_declProc]; SGroup 6546 1 [sym_declArgs]; SGroup 7700 1 [sym_asmTr];
     SGroup 10355 1 [sym__declProc]; SGroup 10443 1 [sym__declOperator];
     SGroup 11110 1 [sym_rttiAttributes]; SGroup 11216 1 [aux_sym_rttiAttributes_repeat2];
     AGroup 3 2 syms_5; AGroup 18758 2 syms_65; AGroup 18764 2 syms_66; AGroup 23 4 syms_3;
     SGroup 6738 11 syms_210]);
   (296829, 4, [AGroup 5 1 [sym_ppDirective]; AGroup 3 2 syms_5; AGroup 10742 5 syms_150;
     AGroup 10740 36 syms_240]);
   (296882, 4, [AGroup 5 1 [sym_ppDirective]; AGroup 3 2 syms_5; AGroup 10752 5 syms_150;
     AGroup 10750 36 syms_240]);
   (296935, 4, [AGroup 5 1 [sym_ppDirective]; AGroup 3 2 syms_5; AGroup 10762 5 syms_150;
     AGroup 10760 36 syms_240]);
   (296988, 28, [AGroup 5 1 [sym_ppDirective]; AGroup 9 1 [anon_sym_LBRACK];
     AGroup 11 1 [aux_sym_ppUsesBlock_token1]; AGroup 13 1 [sym_kGeneric];
     AGroup 15 1 [sym_kOperator]; AGroup 18748 1 [anon_sym_LPAREN]; AGroup 18756 1 [sym_kClass];
     AGroup 18760 1 [sym_kExports]; AGroup 18762 1 [sym_kLabel]; AGroup 18766 1 [sym_kType];
     AGroup 18768 1 [sym_kUses]; AGroup 19133 1 [anon_sym_COLON]; AGroup 19135 1 [sym_kAsm];
     AGroup 19137 1 [sym_kBegin]; SGroup 16 1 [sym__ppIf]; SGroup 5631 1 [sym_blockTr];
     SGroup 6432 1 [sym_declProc]; SGroup 6548 1 [sym_declArgs]; SGroup 8837 1 [sym_asmTr];
     SGroup 10355 1 [sym__declProc]; SGroup 10443 1 [sym__declOperator];
     SGroup 11110 1 [sym_rttiAttributes]; SGroup 11216 1 [aux_sym_rttiAttributes_repeat2];
     AGroup 3 2 syms_5; AGroup 18758 2 syms_65; AGroup 18764 2 syms_66; AGroup 23 4 syms_3;
     SGroup 6750 11 syms_210]);
   (297089, 4, [AGroup 5 1 [sym_ppDirective]; AGroup 3 2 syms_5; AGroup 10776 5 syms_150;
     AGroup 10774 36 syms_240]);
   (297142, 4, [AGroup 5 1 [sym_ppDirective]; AGroup 3 2 syms_5; AGroup 10780 5 syms_150;
     AGroup 10778 36 syms_240]);
   (297195, 28, [AGroup 5 1 [sym_ppDirective]; AGroup 9 1 [anon_sym_LBRACK];
     AGroup 11 1 [aux_sym_ppUsesBlock_token1]; AGroup 13 1 [sym_kGeneric];
     AGroup 15 1 [sym_kOperator]; AGroup 18748 1 [anon_sym_LPAREN]; AGroup 18756 1 [sym_kClass];
     AGroup 18760 1 [sym_kExports]; AGroup 18762 1 [sym_kLabel]; AGroup 18766 1 [sym_kType];
     AGroup 18768 1 [sym_kUses]; AGroup 19139 1 [anon_sym_COLON]; AGroup 19141 1 [sym_kAsm];
     AGroup 19143 1 [sym_kBegin]; SGroup 16 1 [sym__ppIf]; SGroup 4040 1 [sym_blockTr];
     SGroup 6432 1 [sym_declProc]; SGroup 6551 1 [sym_declArgs]; SGroup 8009 1 [sym_asmTr];
     SGroup 10355 1 [sym__declProc]; SGroup 10443 1 [sym__declOperator];
     SGroup 11110 1 [sym_rttiAttributes]; SGroup 11216 1 [aux_sym_rttiAttributes_repeat2];
     AGroup 3 2 syms_5; AGroup 18758 2 syms_65; AGroup 18764 2 syms_66; AGroup 23 4 syms_3;
     SGroup 6762 11 syms_210]);
   (297296, 4, [AGroup 5 1 [sym_ppDirective]; AGroup 3 2 syms_5; AGroup 10786 5 syms_150;
     AGroup 10784 36 syms_240]);
   (297349, 4, [AGroup 5 1 [sym_ppDirective]; AGroup 3 2 syms_5; AGroup 10722 5 syms_150;
     AGroup 10720 36 syms_232]);
   (297402, 4, [AGroup 5 1 [sym_ppDirective]; AGroup 3 2 syms_5; AGroup 10794 5 syms_150;
     AGroup 10792 36 syms_240]);
   (297455, 28, [AGroup 5 1 [sym_ppDirective]; AGroup 9 1 [anon_sym_LBRACK];
     AGroup 11 1 [aux_sym_ppUsesBlock_token1]; AGroup 13 1 [sym_kGeneric];
     AGroup 15 1 [sym_kOperator]; AGroup 18748 1 [anon_sym_LPAREN]; AGroup 18756 1 [sym_kClass];
     AGroup 18760 1 [sym_kExports]; AGroup 18762 1 [sym_kLabel]; AGroup 18766 1 [sym_kType];
     AGroup 18768 1 [sym_kUses]; AGroup 19145 1 [anon_sym_COLON]; AGroup 19147 1 [sym_kAsm];
     AGroup 19149 1 [sym_kBegin]; SGroup 16 1 [sym__ppIf]; SGroup 5655 1 [sym_blockTr];
     SGroup 6432 1 [sym_declProc]; SGroup 6554 1 [sym_declArgs]; SGroup 8932 1 [sym_asmTr];
     SGroup 10355 1 [sym__declProc]; SGroup 10443 1 [sym__declOperator];
     SGroup 11110 1 [sym_rttiAttributes]; SGroup 11216 1 [aux_sym_rttiAttributes_repeat2];
     AGroup 3 2 syms_5; AGroup 18758 2 syms_65; AGroup 18764 2 syms_66; AGroup 23 4 syms_3;
     SGroup 6774 11 syms_210]);
   (297556, 4, [AGroup 5 1 [sym_ppDirective]; AGroup 3 2 syms_5; AGroup 10804 5 syms_150;
     AGroup 10802 36 syms_240]);
   (297609, 4, [AGroup 5 1 [sym_ppDirective]; AGroup 3 2 syms_5; AGroup 10808 5 syms_150;
     AGroup 10806 36 syms_240]);
   (297662, 4, [AGroup 5 1 [sym_ppDirective]; AGroup 3 2 syms_5; AGroup 10812 5 syms_150;
     AGroup 10810 36 syms_240]);
   (297715, 28, [AGroup 5 1 [sym_ppDirective]; AGroup 9 1 [anon_sym_LBRACK];
     AGroup 11 1 [aux_sym_ppUsesBlock_token1]; AGroup 13 1 [sym_kGeneric];
     AGroup 15 1 [sym_kOperator]; AGroup 18748 1 [anon_sym_LPAREN]; AGroup 18756 1 [sym_kClass];
     AGroup 18760 1 [sym_kExports]; AGroup 18762 1 [sym_kLabel]; AGroup 18766 1 [sym_kType];
     AGroup 18768 1 [sym_kUses]; AGroup 19151 1 [anon_sym_COLON]; AGroup 19153 1 [sym_kAsm];
     AGroup 19155 1 [sym_kBegin]; SGroup 16 1 [sym__ppIf]; SGroup 4904 1 [sym_blockTr];
     SGroup 6432 1 [sym_declProc]; SGroup 6557 1 [sym_declArgs]; SGroup 8519 1 [sym_asmTr];
     SGroup 10355 1 [sym__declProc]; SGroup 10443 1 [sym__declOperator];
     SGroup 11110 1 [sym_rttiAttributes]; SGroup 11216 1 [aux_sym_rttiAttributes_repeat2];
     AGroup 3 2 syms_5; AGroup 18758 2 syms_65; AGroup 18764 2 syms_66; AGroup 23 4 syms_3;
     SGroup 6786 11 syms_210]);
   (297816, 4, [AGroup 5 1 [sym_ppDirective]; AGroup 3 2 syms_5; AGroup 10776 5 syms_150;
     AGroup 10774 36 syms_231]);
   (297869, 28, [AGroup 5 1 [sym_ppDirective]; AGroup 9 1 [anon_sym_LBRACK];
     AGroup 11 1 [aux_sym_ppUsesBlock_token1]; AGroup 13 1 [sym_kGeneric];
     AGroup 15 1 [sym_kOperator]; AGroup 18748 1 [anon_sym_LPAREN]; AGroup 18756 1 [sym_kClass];
     AGroup 18760 1 [sym_kExports]; AGroup 18762 1 [sym_kLabel]; AGroup 18766 1 [sym_kType];
     AGroup 18768 1 [sym_kUses]; AGroup 19157 1 [anon_sym_COLON]; AGroup 19159 1 [sym_kAsm];
     AGroup 19161 1 [sym_kBegin]; SGroup 16 1 [sym__ppIf]; SGroup 4049 1 [sym_blockTr];
     SGroup 6432 1 [sym_declProc]; SGroup 6558 1 [sym_declArgs]; SGroup 8027 1 [sym_asmTr];
     SGroup 10355 1 [sym__declProc]; SGroup 10443 1 [sym__declOperator];
     SGroup 11110 1 [sym_rttiAttributes]; SGroup 11216 1 [aux_sym_rttiAttributes_repeat2];
     AGroup 3 2 syms_5; AGroup 18758 2 syms_65; AGroup 18764 2 syms_66; AGroup 23 4 syms_3;
     SGroup 6797 11 syms_210]);
   (297970, 4, [AGroup 5 1 [sym_ppDirective]; AGroup 3 2 syms_5; AGroup 10872 5 syms_150;
     AGroup 10870 36 syms_232]);
   (298023, 28, [AGroup 5 1 [sym_ppDirective]; AGroup 9 1 [anon_sym_LBRACK];
     AGroup 11 1 [aux_sym_ppUsesBlock_token1]; AGroup 13 1 [sym_kGeneric];
     AGroup 15 1 [sym_kOperator]; AGroup 18748 1 [anon_sym_LPAREN]; AGroup 18756 1 [sym_kClass];
     AGroup 18760 1 [sym_kExports]; AGroup 18762 1 [sym_kLabel]; AGroup 18766 1 [sym_kType];
     AGroup 18768 1 [sym_kUses]; AGroup 19163 1 [anon_sym_COLON]; AGroup 19165 1 [sym_kAsm];
     AGroup 19167 1 [sym_kBegin]; SGroup 16 1 [sym__ppIf]; SGroup 2886 1 [sym_blockTr];
     SGroup 3635 1 [sym_asmTr]; SGroup 6432 1 [sym_declProc]; SGroup 6560 1 [sym_declArgs];
     SGroup 10355 1 [sym__declProc]; SGroup 10443 1 [sym__declOperator];
     SGroup 11110 1 [sym_rttiAttributes]; SGroup 11216 1 [aux_sym_rttiAttributes_repeat2];
     AGroup 3 2 syms_5; AGroup 18758 2 syms_65; AGroup 18764 2 syms_66; AGroup 23 4 syms_3;
     SGroup 6808 11 syms_210]);
   (298124, 28, [AGroup 5 1 [sym_ppDirective]; AGroup 9 1 [anon_sym_LBRACK];
     AGroup 11 1 [aux_sym_ppUsesBlock_token1]; AGroup 13 1 [sym_kGeneric];
     AGroup 15 1 [sym_kOperator]; AGroup 18748 1 [anon_sym_LPAREN]; AGroup 18756 1 [sym_kClass];
     AGroup 18760 1 [sym_kExports]; AGroup 18762 1 [sym_kLabel]; AGroup 18766 1 [sym_kType];
     AGroup 18768 1 [sym_kUses]; AGroup 19169 1 [anon_sym_COLON]; AGroup 19171 1 [sym_kAsm];
     AGroup 19173 1 [sym_kBegin]; SGroup 16 1 [sym__ppIf]; SGroup 4004 1 [sym_blockTr];
     SGroup 6432 1 [sym_declProc]; SGroup 6563 1 [sym_declArgs]; SGroup 7835 1 [sym_asmTr];
     SGroup 10355 1 [sym__declProc]; SGroup 10443 1 [sym__declOperator];
     SGroup 11110 1 [sym_rttiAttributes]; SGroup 11216 1 [aux_sym_rttiAttributes_repeat2];
     AGroup 3 2 syms_5; AGroup 18758 2 syms_65; AGroup 18764 2 syms_66; AGroup 23 4 syms_3;
     SGroup 6820 11 syms_210]);
   (298225, 4, [AGroup 5 1 [sym_ppDirective]; AGroup 3 2 syms_5; AGroup 10840 5 syms_150;
     AGroup 10838 36 syms_231]);
   (298278, 28, [AGroup 5 1 [sym_ppDirective]; AGroup 9 1 [anon_sym_LBRACK];
     AGroup 11 1 [aux_sym_ppUsesBlock_token1]; AGroup 13 1 [sym_kGeneric];
     AGroup 15 1 [sym_kOperator]; AGroup 18748 1 [anon_sym_LPAREN]; AGroup 18756 1 [sym_kClass];
     AGroup 18760 1 [sym_kExports]; AGroup 18762 1 [sym_kLabel]; AGroup 18766 1 [sym_kType];
     AGroup 18768 1 [sym_kUses]; AGroup 19175 1 [anon_sym_COLON]; AGroup 19177 1 [sym_kAsm];
     AGroup 19179 1 [sym_kBegin]; SGroup 16 1 [sym__ppIf]; SGroup 3578 1 [sym_blockTr];
     SGroup 6432 1 [sym_declProc]; SGroup 6564 1 [sym_declArgs]; SGroup 7576 1 [sym_asmTr];
     SGroup 10355 1 [sym__declProc]; SGroup 10443 1 [sym__declOperator];
     SGroup 11110 1 [sym_rttiAttributes]; SGroup 11216 1 [aux_sym_rttiAttributes_repeat2];
     AGroup 3 2 syms_5; AGroup 18758 2 syms_65; AGroup 18764 2 syms_66; AGroup 23 4 syms_3;
     SGroup 6986 11 syms_210]);
   (298379, 28, [AGroup 5 1 [sym_ppDirective]; AGroup 9 1 [anon_sym_LBRACK];
     AGroup 11 1 [aux_sym_ppUsesBlock_token1]; AGroup 13 1 [sym_kGeneric];
     AGroup 15 1 [sym_kOperator]; AGroup 18748 1 [anon_sym_LPAREN]; AGroup 18756 1 [sym_kClass];
     AGroup 18760 1 [sym_kExports]; AGroup 18762 1 [sym_kLabel]; AGroup 18766 1 [sym_kType];
     AGroup 18768 1 [sym_kUses]; AGroup 19181 1 [anon_sym_COLON]; AGroup 19183 1 [sym_kAsm];
     AGroup 19185 1 [sym_kBegin]; SGroup 16 1 [sym__ppIf]; SGroup 4228 1 [sym_blockTr];
     SGroup 6432 1 [sym_declProc]; SGroup 6565 1 [sym_declArgs]; SGroup 8581 1 [sym_asmTr];
     SGroup 10355 1 [sym__declProc]; SGroup 10443 1 [sym__declOperator];
     SGroup 11110 1 [sym_rttiAttributes]; SGroup 11216 1 [aux_sym_rttiAttributes_repeat2];
     AGroup 3 2 syms_5; AGroup 18758 2 syms_65; AGroup 18764 2 syms_66; AGroup 23 4 syms_3;
     SGroup 6843 11 syms_210]);
   (298480, 4, [AGroup 5 1 [sym_ppDirective]; AGroup 3 2 syms_5; AGroup 10742 5 syms_150;
     AGroup 10740 36 syms_232]);
   (298533, 4, [AGroup 5 1 [sym_ppDirective]; AGroup 3 2 syms_5; AGroup 10752 5 syms_150;
     AGroup 10750 36 syms_232]);
   (298586, 4, [AGroup 5 1 [sym_ppDirective]; AGroup 3 2 syms_5; AGroup 18782 5 syms_150;
     AGroup 18780 36 syms_242]);
   (298639, 4, [AGroup 5 1 [sym_ppDirective]; AGroup 3 2 syms_5; AGroup 10762 5 syms_150;
     AGroup 10760 36 syms_232]);
   (298692, 28, [AGroup 5 1 [sym_ppDirective]; AGroup 9 1 [anon_sym_LBRACK];
     AGroup 11 1 [aux_sym_ppUsesBlock_token1]; AGroup 13 1 [sym_kGeneric];
     AGroup 15 1 [sym_kOperator]; AGroup 18748 1 [anon_sym_LPAREN]; AGroup 18756 1 [sym_kClass];
     AGroup 18760 1 [sym_kExports]; AGroup 18762 1 [sym_kLabel]; AGroup 18766 1 [sym_kType];
     AGroup 18768 1 [sym_kUses]; AGroup 19187 1 [anon_sym_COLON]; AGroup 19189 1 [sym_kAsm];
     AGroup 19191 1 [sym_kBegin]; SGroup 16 1 [sym__ppIf]; SGroup 5585 1 [sym_blockTr];
     SGroup 6432 1 [sym_declProc]; SGroup 6568 1 [sym_declArgs]; SGroup 8711 1 [sym_asmTr];
     SGroup 10355 1 [sym__declProc]; SGroup 10443 1 [sym__declOperator];
     SGroup 11110 1 [sym_rttiAttributes]; SGroup 11216 1 [aux_sym_rttiAttributes_repeat2];
     AGroup 3 2 syms_5; AGroup 18758 2 syms_65; AGroup 18764 2 syms_66; AGroup 23 4 syms_3;
     SGroup 6853 11 syms_210]);
   (298793, 25, [AGroup 5 1 [sym_ppDirective]; AGroup 13351 1 [aux_sym_ppUsesBlock_token1];
     AGroup 13367 1 [sym_kGeneric]; AGroup 13369 1 [sym_kOperator]; AGroup 13373 1 [sym_kStrict];
     AGroup 13377 1 [sym_kCase]; AGroup 13379 1 [sym_kClass]; AGroup 13391 1 [sym_kProperty];
     AGroup 13395 1 [sym_kType]; AGroup 18770 1 [sym_kEnd]; AGroup 18895 1 [anon_sym_LBRACK];
     SGroup 3 1 [sym__ppIf]; SGroup 6354 1 [sym__visibility]; SGroup 9835 1 [sym__declOperator];
     SGroup 10247 1 [sym__declProc]; SGroup 10878 1 [sym_rttiAttributes];
     SGroup 11027 1 [aux_sym_rttiAttributes_repeat2]; SGroup 15535 1 [sym_declVariant];
     AGroup 3 2 syms_5; AGroup 13381 2 syms_65; AGroup 13393 2 syms_66; SGroup 10500 3 syms_69;
     AGroup 13383 4 syms_3; AGroup 13371 6 syms_70; SGroup 7104 7 syms_236]);
   (298888, 28, [AGroup 5 1 [sym_ppDirective]; AGroup 9 1 [anon_sym_LBRACK];
     AGroup 11 1 [aux_sym_ppUsesBlock_token1]; AGroup 13 1 [sym_kGeneric];
     AGroup 15 1 [sym_kOperator]; AGroup 18748 1 [anon_sym_LPAREN]; AGroup 18756 1 [sym_kClass];
     AGroup 18760 1 [sym_kExports]; AGroup 18762 1 [sym_kLabel]; AGroup 18766 1 [sym_kType];
     AGroup 18768 1 [sym_kUses]; AGroup 19193 1 [anon_sym_COLON]; AGroup 19195 1 [sym_kAsm];
     AGroup 19197 1 [sym_kBegin]; SGroup 16 1 [sym__ppIf]; SGroup 5806 1 [sym_blockTr];
     SGroup 6432 1 [sym_declProc]; SGroup 6574 1 [sym_declArgs]; SGroup 9186 1 [sym_asmTr];
     SGroup 10355 1 [sym__declProc]; SGroup 10443 1 [sym__declOperator];
     SGroup 11110 1 [sym_rttiAttributes]; SGroup 11216 1 [aux_sym_rttiAttributes_repeat2];
     AGroup 3 2 syms_5; AGroup 18758 2 syms_65; AGroup 18764 2 syms_66; AGroup 23 4 syms_3;
     SGroup 6872 11 syms_210]);
   (298989, 4, [AGroup 5 1 [sym_ppDirective]; AGroup 3 2 syms_5; AGroup 10908 5 syms_150;
     AGroup 10906 36 syms_232]);
   (299042, 28, [AGroup 5 1 [sym_ppDirective]; AGroup 9 1 [anon_sym_LBRACK];
     AGroup 11 1 [aux_sym_ppUsesBlock_token1]; AGroup 13 1 [sym_kGeneric];
     AGroup 15 1 [sym_kOperator]; AGroup 18748 1 [anon_sym_LPAREN]; AGroup 18756 1 [sym_kClass];
     AGroup 18760 1 [sym_kExports]; AGroup 18762 1 [sym_kLabel]; AGroup 18766 1 [sym_kType];
     AGroup 18768 1 [sym_kUses]; AGroup 19199 1 [anon_sym_COLON]; AGroup 19201 1 [sym_kAsm];
     AGroup 19203 1 [sym_kBegin]; SGroup 16 1 [sym__ppIf]; SGroup 4257 1 [sym_blockTr];
     SGroup 6432 1 [sym_declProc]; SGroup 6570 1 [sym_declArgs]; SGroup 8455 1 [sym_asmTr];
     SGroup 10355 1 [sym__declProc]; SGroup 10443 1 [sym__declOperator];
     SGroup 11110 1 [sym_rttiAttributes]; SGroup 11216 1 [aux_sym_rttiAttributes_repeat2];
     AGroup 3 2 syms_5; AGroup 18758 2 syms_65; AGroup 18764 2 syms_66; AGroup 23 4 syms_3;
     SGroup 6863 11 syms_210]);
   (299143, 5, [AGroup 5 1 [sym_ppDirective]; AGroup 18739 1 [sym_kEnd]; AGroup 3 2 syms_5;
     AGroup 18720 5 syms_150; AGroup 18718 35 syms_192]);
   (299198, 4, [AGroup 5 1 [sym_ppDirective]; AGroup 3 2 syms_5; AGroup 10916 5 syms_150;
     AGroup 10914 36 syms_232]);
   (299251, 28, [AGroup 5 1 [sym_ppDirective]; AGroup 9 1 [anon_sym_LBRACK];
     AGroup 11 1 [aux_sym_ppUsesBlock_token1]; AGroup 13 1 [sym_kGeneric];
     AGroup 15 1 [sym_kOperator]; AGroup 18748 1 [anon_sym_LPAREN]; AGroup 18756 1 [sym_kClass];
     AGroup 18760 1 [sym_kExports]; AGroup 18762 1 [sym_kLabel]; AGroup 18766 1 [sym_kType];
     AGroup 18768 1 [sym_kUses]; AGroup 19205 1 [anon_sym_COLON]; AGroup 19207 1 [sym_kAsm];
     AGroup 19209 1 [sym_kBegin]; SGroup 16 1 [sym__ppIf]; SGroup 5595 1 [sym_blockTr];
     SGroup 6432 1 [sym_declProc]; SGroup 6573 1 [sym_declArgs]; SGroup 8794 1 [sym_asmTr];
     SGroup 10355 1 [sym__declProc]; SGroup 10443 1 [sym__declOperator];
     SGroup 11110 1 [sym_rttiAttributes]; SGroup 11216 1 [aux_sym_rttiAttributes_repeat2];
     AGroup 3 2 syms_5; AGroup 18758 2 syms_65; AGroup 18764 2 syms_66; AGroup 23 4 syms_3;
     SGroup 6874 11 syms_210]);
   (299352, 4, [AGroup 5 1 [sym_ppDirective]; AGroup 3 2 syms_5; AGroup 10776 5 syms_150;
     AGroup 10774 36 syms_232]);
   (299405, 28, [AGroup 5 1 [sym_ppDirective]; AGroup 9 1 [anon_sym_LBRACK];
     AGroup 11 1 [aux_sym_ppUsesBlock_token1]; AGroup 13 1 [sym_kGeneric];
     AGroup 15 1 [sym_kOperator]; AGroup 18748 1 [anon_sym_LPAREN]; AGroup 18756 1 [sym_kClass];
     AGroup 18760 1 [sym_kExports]; AGroup 18762 1 [sym_kLabel]; AGroup 18766 1 [sym_kType];
     AGroup 18768 1 [sym_kUses]; AGroup 19211 1 [anon_sym_COLON]; AGroup 19213 1 [sym_kAsm];
     AGroup 19215 1 [sym_kBegin]; SGroup 16 1 [sym__ppIf]; SGroup 2910 1 [sym_blockTr];
     SGroup 6432 1 [sym_declProc]; SGroup 6576 1 [sym_declArgs]; SGroup 6988 1 [sym_asmTr];
     SGroup 10355 1 [sym__declProc]; SGroup 10443 1 [sym__declOperator];
     SGroup 11110 1 [sym_rttiAttributes]; SGroup 11216 1 [aux_sym_rttiAttributes_repeat2];
     AGroup 3 2 syms_5; AGroup 18758 2 syms_65; AGroup 18764 2 syms_66; AGroup 23 4 syms_3;
     SGroup 6885 11 syms_210]);
   (299506, 4, [AGroup 5 1 [sym_ppDirective]; AGroup 3 2 syms_5; AGroup 10780 5 syms_150;
     AGroup 10778 36 syms_232]);
   (299559, 5, [AGroup 5 1 [sym_ppDirective]; AGroup 18722 1 [sym_kUntil]; AGroup 3 2 syms_5;
     AGroup 18720 5 syms_150; AGroup 18718 35 syms_192]);
   (299614, 28, [AGroup 5 1 [sym_ppDirective]; AGroup 9 1 [anon_sym_LBRACK];
     AGroup 11 1 [aux_sym_ppUsesBlock_token1]; AGroup 13 1 [sym_kGeneric];
     AGroup 15 1 [sym_kOperator]; AGroup 18748 1 [anon_sym_LPAREN]; AGroup 18756 1 [sym_kClass];
     AGroup 18760 1 [sym_kExports]; AGroup 18762 1 [sym_kLabel]; AGroup 18766 1 [sym_kType];
     AGroup 18768 1 [sym_kUses]; AGroup 19217 1 [anon_sym_COLON]; AGroup 19219 1 [sym_kAsm];
     AGroup 19221 1 [sym_kBegin]; SGroup 16 1 [sym__ppIf]; SGroup 5659 1 [sym_blockTr];
     SGroup 6432 1 [sym_declProc]; SGroup 6578 1 [sym_declArgs]; SGroup 8861 1 [sym_asmTr];
     SGroup 10355 1 [sym__declProc]; SGroup 10443 1 [sym__declOperator];
     SGroup 11110 1 [sym_rttiAttributes]; SGroup 11216 1 [aux_sym_rttiAttributes_repeat2];
     AGroup 3 2 syms_5; AGroup 18758 2 syms_65; AGroup 18764 2 syms_66; AGroup 23 4 syms_3;
     SGroup 6895 11 syms_210]);
   (299715, 4, [AGroup 5 1 [sym_ppDirective]; AGroup 3 2 syms_5; AGroup 10804 5 syms_150;
     AGroup 10802 36 syms_232]);
   (299768, 28, [AGroup 5 1 [sym_ppDirective]; AGroup 9 1 [anon_sym_LBRACK];
     AGroup 11 1 [aux_sym_ppUsesBlock_token1]; AGroup 13 1 [sym_kGeneric];
     AGroup 15 1 [sym_kOperator]; AGroup 18748 1 [anon_sym_LPAREN]; AGroup 18756 1 [sym_kClass];
     AGroup 18760 1 [sym_kExports]; AGroup 18762 1 [sym_kLabel]; AGroup 18766 1 [sym_kType];
     AGroup 18768 1 [sym_kUses]; AGroup 19223 1 [anon_sym_COLON]; AGroup 19225 1 [sym_kAsm];
     AGroup 19227 1 [sym_kBegin]; SGroup 16 1 [sym__ppIf]; SGroup 3410 1 [sym_blockTr];
     SGroup 6432 1 [sym_declProc]; SGroup 6580 1 [sym_declArgs]; SGroup 7523 1 [sym_asmTr];
     SGroup 10355 1 [sym__declProc]; SGroup 10443 1 [sym__declOperator];
     SGroup 11110 1 [sym_rttiAttributes]; SGroup 11216 1 [aux_sym_rttiAttributes_repeat2];
     AGroup 3 2 syms_5; AGroup 18758 2 syms_65; AGroup 18764 2 syms_66; AGroup 23 4 syms_3;
     SGroup 6904 11 syms_210]);
   (299869, 6, [AGroup 5 1 [sym_ppDirective]; AGroup 18731 1 [sym_kUntil]; AGroup 3 2 syms_5;
     AGroup 18728 2 syms_186; AGroup 18720 5 syms_150; AGroup 18718 33 syms_199]);
   (299926, 4, [AGroup 5 1 [sym_ppDirective]; AGroup 3 2 syms_5; AGroup 10808 5 syms_150;
     AGroup 10806 36 syms_231]);
   (299979, 4, [AGroup 5 1 [sym_ppDirective]; AGroup 3 2 syms_5; AGroup 10804 5 syms_150;
     AGroup 10802 36 syms_231]);
   (300032, 25, [AGroup 5 1 [sym_ppDirective]; AGroup 13351 1 [aux_sym_ppUsesBlock_token1];
     AGroup 13367 1 [sym_kGeneric]; AGroup 13369 1 [sym_kOperator]; AGroup 13373 1 [sym_kStrict];
     AGroup 13377 1 [sym_kCase]; AGroup 13379 1 [sym_kClass]; AGroup 13391 1 [sym_kProperty];
     AGroup 13395 1 [sym_kType]; AGroup 18895 1 [anon_sym_LBRACK]; AGroup 19229 1 [sym_kEnd];
     SGroup 3 1 [sym__ppIf]; SGroup 6354 1 [sym__visibility]; SGroup 9835 1 [sym__declOperator];
     SGroup 10247 1 [sym__declProc]; SGroup 10878 1 [sym_rttiAttributes];
     SGroup 11027 1 [aux_sym_rttiAttributes_repeat2]; SGroup 14298 1 [sym_declVariant];
     AGroup 3 2 syms_5; AGroup 13381 2 syms_65; AGroup 13393 2 syms_66; SGroup 10516 3 syms_69;
     AGroup 13383 4 syms_3; AGroup 13371 6 syms_70; SGroup 7104 7 syms_236]);
   (300127, 28, [AGroup 5 1 [sym_ppDirective]; AGroup 9 1 [anon_sym_LBRACK];
     AGroup 11 1 [aux_sym_ppUsesBlock_token1]; AGroup 13 1 [sym_kGeneric];
     AGroup 15 1 [sym_kOperator]; AGroup 18748 1 [anon_sym_LPAREN]; AGroup 18756 1 [sym_kClass];
     AGroup 18760 1 [sym_kExports]; AGroup 18762 1 [sym_kLabel]; AGroup 18766 1 [sym_kType];
     AGroup 18768 1 [sym_kUses]; AGroup 19231 1 [anon_sym_COLON]; AGroup 19233 1 [sym_kAsm];
     AGroup 19235 1 [sym_kBegin]; SGroup 16 1 [sym__ppIf]; SGroup 3162 1 [sym_blockTr];
     SGroup 6432 1 [sym_declProc]; SGroup 6583 1 [sym_declArgs]; SGroup 7172 1 [sym_asmTr];
     SGroup 10355 1 [sym__declProc]; SGroup 10443 1 [sym__declOperator];
     SGroup 11110 1 [sym_rttiAttributes]; SGroup 11216 1 [aux_sym_rttiAttributes_repeat2];
     AGroup 3 2 syms_5; AGroup 18758 2 syms_65; AGroup 18764 2 syms_66; AGroup 23 4 syms_3;
     SGroup 6916 11 syms_210]);
   (300228, 4, [AGroup 5 1 [sym_ppDirective]; AGroup 3 2 syms_5; AGroup 10786 5 syms_150;
     AGroup 10784 36 syms_232]);
   (300281, 6, [AGroup 5 1 [sym_ppDirective]; AGroup 3 2 syms_5; AGroup 19237 2 syms_186;
     SGroup 6313 2 syms_187; AGroup 18703 5 syms_150; AGroup 18701 32 syms_243]);
   (300338, 23, [AGroup 5 1 [sym_ppDirective]; AGroup 9 1 [anon_sym_LBRACK];
     AGroup 11 1 [aux_sym_ppUsesBlock_token1]; AGroup 13 1 [sym_kGeneric];
     AGroup 15 1 [sym_kOperator]; AGroup 18991 1 [sym_kClass]; AGroup 18997 1 [sym_kExports];
     AGroup 18999 1 [sym_kLabel]; AGroup 19003 1 [sym_kType]; AGroup 19005 1 [sym_kUses];
     AGroup 19240 1 [sym_kBegin]; SGroup 22 1 [sym__ppIf]; SGroup 6426 1 [sym_declProc];
     SGroup 10348 1 [sym__declProc]; SGroup 10443 1 [sym__declOperator];
     SGroup 11110 1 [sym_rttiAttributes]; SGroup 11216 1 [aux_sym_rttiAttributes_repeat2];
     AGroup 3 2 syms_5; AGroup 18993 2 syms_65; AGroup 19001 2 syms_66; AGroup 23 4 syms_3;
     AGroup 19243 5 syms_60; SGroup 6249 12 syms_239]);
   (300429, 28, [AGroup 5 1 [sym_ppDirective]; AGroup 9 1 [anon_sym_LBRACK];
     AGroup 11 1 [aux_sym_ppUsesBlock_token1]; AGroup 13 1 [sym_kGeneric];
     AGroup 15 1 [sym_kOperator]; AGroup 18748 1 [anon_sym_LPAREN]; AGroup 18756 1 [sym_kClass];
     AGroup 18760 1 [sym_kExports]; AGroup 18762 1 [sym_kLabel]; AGroup 18766 1 [sym_kType];
     AGroup 18768 1 [sym_kUses]; AGroup 19245 1 [anon_sym_COLON]; AGroup 19247 1 [sym_kAsm];
     AGroup 19249 1 [sym_kBegin]; SGroup 16 1 [sym__ppIf]; SGroup 3747 1 [sym_blockTr];
     SGroup 6432 1 [sym_declProc]; SGroup 6584 1 [sym_declArgs]; SGroup 7663 1 [sym_asmTr];
     SGroup 10355 1 [sym__declProc]; SGroup 10443 1 [sym__declOperator];
     SGroup 11110 1 [sym_rttiAttributes]; SGroup 11216 1 [aux_sym_rttiAttributes_repeat2];
     AGroup 3 2 syms_5; AGroup 18758 2 syms_65; AGroup 18764 2 syms_66; AGroup 23 4 syms_3;
     SGroup 6926 11 syms_210]);
   (300530, 4, [AGroup 5 1 [sym_ppDirective]; AGroup 3 2 syms_5; AGroup 10768 5 syms_150;
     AGroup 10766 36 syms_232]);
   (300583, 25, [AGroup 5 1 [sym_ppDirective]; AGroup 13351 1 [aux_sym_ppUsesBlock_token1];
     AGroup 13367 1 [sym_kGeneric]; AGroup 13369 1 [sym_kOperator]; AGroup 13373 1 [sym_kStrict];
     AGroup 13377 1 [sym_kCase]; AGroup 13379 1 [sym_kClass]; AGroup 13391 1 [sym_kProperty];
     AGroup 13395 1 [sym_kType]; AGroup 18895 1 [anon_sym_LBRACK]; AGroup 19251 1 [sym_kEnd];
     SGroup 3 1 [sym__ppIf]; SGroup 6354 1 [sym__visibility]; SGroup 9835 1 [sym__declOperator];
     SGroup 10247 1 [sym__declProc]; SGroup 10878 1 [sym_rttiAttributes];
     SGroup 11027 1 [aux_sym_rttiAttributes_repeat2]; SGroup 15397 1 [sym_declVariant];
     AGroup 3 2 syms_5; AGroup 13381 2 syms_65; AGroup 13393 2 syms_66; SGroup 10495 3 syms_69;
     AGroup 13383 4 syms_3; AGroup 13371 6 syms_70; SGroup 7104 7 syms_236]);
   (300678, 4, [AGroup 5 1 [sym_ppDirective]; AGroup 3 2 syms_5; AGroup 10828 5 syms_150;
     AGroup 10826 36 syms_232]);
   (300731, 4, [AGroup 5 1 [sym_ppDirective]; AGroup 3 2 syms_5; AGroup 10880 5 syms_150;
     AGroup 10878 36 syms_232]);
   (300784, 4, [AGroup 5 1 [sym_ppDirective]; AGroup 3 2 syms_5; AGroup 10712 5 syms_150;
     AGroup 10710 36 syms_232]);
   (300837, 4, [AGroup 5 1 [sym_ppDirective]; AGroup 3 2 syms_5; AGroup 10852 5 syms_150;
     AGroup 10850 36 syms_232]);
   (300890, 4, [AGroup 5 1 [sym_ppDirective]; AGroup 3 2 syms_5; AGroup 10734 5 syms_150;
     AGroup 10732 36 syms_232]);
   (300943, 28, [AGroup 5 1 [sym_ppDirective]; AGroup 9 1 [anon_sym_LBRACK];
     AGroup 11 1 [aux_sym_ppUsesBlock_token1]; AGroup 13 1 [sym_kGeneric];
     AGroup 15 1 [sym_kOperator]; AGroup 18748 1 [anon_sym_LPAREN]; AGroup 18756 1 [sym_kClass];
     AGroup 18760 1 [sym_kExports]; AGroup 18762 1 [sym_kLabel]; AGroup 18766 1 [sym_kType];
     AGroup 18768 1 [sym_kUses]; AGroup 19253 1 [anon_sym_COLON]; AGroup 19255 1 [sym_kAsm];
     AGroup 19257 1 [sym_kBegin]; SGroup 16 1 [sym__ppIf]; SGroup 4351 1 [sym_blockTr];
     SGroup 6432 1 [sym_declProc]; SGroup 6589 1 [sym_declArgs]; SGroup 8477 1 [sym_asmTr];
     SGroup 10355 1 [sym__declProc]; SGroup 10443 1 [sym__declOperator];
     SGroup 11110 1 [sym_rttiAttributes]; SGroup 11216 1 [aux_sym_rttiAttributes_repeat2];
     AGroup 3 2 syms_5; AGroup 18758 2 syms_65; AGroup 18764 2 syms_66; AGroup 23 4 syms_3;
     SGroup 6944 11 syms_210]);
   (301044, 4, [AGroup 5 1 [sym_ppDirective]; AGroup 3 2 syms_5; AGroup 10734 5 syms_150;
     AGroup 10732 36 syms_232]);
   (301097, 28, [AGroup 5 1 [sym_ppDirective]; AGroup 9 1 [anon_sym_LBRACK];
     AGroup 11 1 [aux_sym_ppUsesBlock_token1]; AGroup 13 1 [sym_kGeneric];
     AGroup 15 1 [sym_kOperator]; AGroup 18748 1 [anon_sym_LPAREN]; AGroup 18756 1 [sym_kClass];
     AGroup 18760 1 [sym_kExports]; AGroup 18762 1 [sym_kLabel]; AGroup 18766 1 [sym_kType];
     AGroup 18768 1 [sym_kUses]; AGroup 19259 1 [anon_sym_COLON]; AGroup 19261 1 [sym_kAsm];
     AGroup 19263 1 [sym_kBegin]; SGroup 16 1 [sym__ppIf]; SGroup 3392 1 [sym_blockTr];
     SGroup 6432 1 [sym_declProc]; SGroup 6581 1 [sym_declArgs]; SGroup 7519 1 [sym_asmTr];
     SGroup 10355 1 [sym__declProc]; SGroup 10443 1 [sym__declOperator];
     SGroup 11110 1 [sym_rttiAttributes]; SGroup 11216 1 [aux_sym_rttiAttributes_repeat2];
     AGroup 3 2 syms_5; AGroup 18758 2 syms_65; AGroup 18764 2 syms_66; AGroup 23 4 syms_3;
     SGroup 6907 11 syms_210]);
   (301198, 4, [AGroup 5 1 [sym_ppDirective]; AGroup 3 2 syms_5; AGroup 10856 5 syms_150;
     AGroup 10854 36 syms_232]);
   (301251, 5, [AGroup 5 1 [sym_ppDirective]; AGroup 18722 1 [sym_kEnd]; AGroup 3 2 syms_5;
     AGroup 18720 5 syms_150; AGroup 18718 35 syms_192]);
   (301306, 4, [AGroup 5 1 [sym_ppDirective]; AGroup 3 2 syms_5; AGroup 19267 5 syms_150;
     AGroup 19265 36 syms_242]);
   (301359, 4, [AGroup 5 1 [sym_ppDirective]; AGroup 3 2 syms_5; AGroup 19271 5 syms_150;
     AGroup 19269 36 syms_242]);
   (301412, 4, [AGroup 5 1 [sym_ppDirective]; AGroup 3 2 syms_5; AGroup 10884 5 syms_150;
     AGroup 10882 36 syms_232]);
   (301465, 4, [AGroup 5 1 [sym_ppDirective]; AGroup 3 2 syms_5; AGroup 10820 5 syms_150;
     AGroup 10818 36 syms_240]);
   (301518, 4, [AGroup 5 1 [sym_ppDirective]; AGroup 3 2 syms_5; AGroup 10708 5 syms_150;
     AGroup 10706 36 syms_232]);
   (301571, 4, [AGroup 5 1 [sym_ppDirective]; AGroup 3 2 syms_5; AGroup 10856 5 syms_150;
     AGroup 10854 36 syms_231]);
   (301624, 4, [AGroup 5 1 [sym_ppDirective]; AGroup 3 2 syms_5; AGroup 10916 5 syms_150;
     AGroup 10914 36 syms_231]);
   (301677, 28, [AGroup 5 1 [sym_ppDirective]; AGroup 9 1 [anon_sym_LBRACK];
     AGroup 11 1 [aux_sym_ppUsesBlock_token1]; AGroup 13 1 [sym_kGeneric];
     AGroup 15 1 [sym_kOperator]; AGroup 18748 1 [anon_sym_LPAREN]; AGroup 18756 1 [sym_kClass];
     AGroup 18760 1 [sym_kExports]; AGroup 18762 1 [sym_kLabel]; AGroup 18766 1 [sym_kType];
     AGroup 18768 1 [sym_kUses]; AGroup 19273 1 [anon_sym_COLON]; AGroup 19275 1 [sym_kAsm];
     AGroup 19277 1 [sym_kBegin]; SGroup 16 1 [sym__ppIf]; SGroup 5753 1 [sym_blockTr];
     SGroup 6432 1 [sym_declProc]; SGroup 6460 1 [sym_declArgs]; SGroup 9372 1 [sym_asmTr];
     SGroup 10355 1 [sym__declProc]; SGroup 10443 1 [sym__declOperator];
     SGroup 11110 1 [sym_rttiAttributes]; SGroup 11216 1 [aux_sym_rttiAttributes_repeat2];
     AGroup 3 2 syms_5; AGroup 18758 2 syms_65; AGroup 18764 2 syms_66; AGroup 23 4 syms_3;
     SGroup 6968 11 syms_210]);
   (301778, 25, [AGroup 5 1 [sym_ppDirective]; AGroup 13351 1 [aux_sym_ppUsesBlock_token1];
     AGroup 13367 1 [sym_kGeneric]; AGroup 13369 1 [sym_kOperator]; AGroup 13373 1 [sym_kStrict];
     AGroup 13377 1 [sym_kCase]; AGroup 13379 1 [sym_kClass]; AGroup 13391 1 [sym_kProperty];
     AGroup 13395 1 [sym_kType]; AGroup 18895 1 [anon_sym_LBRACK]; AGroup 19279 1 [sym_kEnd];
     SGroup 3 1 [sym__ppIf]; SGroup 6354 1 [sym__visibility]; SGroup 9835 1 [sym__declOperator];
     SGroup 10247 1 [sym__declProc]; SGroup 10878 1 [sym_rttiAttributes];
     SGroup 11027 1 [aux_sym_rttiAttributes_repeat2]; SGroup 14713 1 [sym_declVariant];
     AGroup 3 2 syms_5; AGroup 13381 2 syms_65; AGroup 13393 2 syms_66; SGroup 10514 3 syms_69;
     AGroup 13383 4 syms_3; AGroup 13371 6 syms_70; SGroup 7104 7 syms_236]);
   (301873, 28, [AGroup 5 1 [sym_ppDirective]; AGroup 9 1 [anon_sym_LBRACK];
     AGroup 11 1 [aux_sym_ppUsesBlock_token1]; AGroup 13 1 [sym_kGeneric];
     AGroup 15 1 [sym_kOperator]; AGroup 18748 1 [anon_sym_LPAREN]; AGroup 18756 1 [sym_kClass];
     AGroup 18760 1 [sym_kExports]; AGroup 18762 1 [sym_kLabel]; AGroup 18766 1 [sym_kType];
     AGroup 18768 1 [sym_kUses]; AGroup 19281 1 [anon_sym_COLON]; AGroup 19283 1 [sym_kAsm];
     AGroup 19285 1 [sym_kBegin]; SGroup 16 1 [sym__ppIf]; SGroup 4572 1 [sym_blockTr];
     SGroup 6432 1 [sym_declProc]; SGroup 6466 1 [sym_declArgs]; SGroup 8377 1 [sym_asmTr];
     SGroup 10355 1 [sym__declProc]; SGroup 10443 1 [sym__declOperator];
     SGroup 11110 1 [sym_rttiAttributes]; SGroup 11216 1 [aux_sym_rttiAttributes_repeat2];
     AGroup 3 2 syms_5; AGroup 18758 2 syms_65; AGroup 18764 2 syms_66; AGroup 23 4 syms_3;
     SGroup 6818 11 syms_210]);
   (301974, 5, [AGroup 5 1 [sym_ppDirective]; AGroup 19287 1 [sym_kElse]; AGroup 3 2 syms_5;
     AGroup 10722 5 syms_150; AGroup 10720 35 syms_192]);
   (302029, 4, [AGroup 5 1 [sym_ppDirective]; AGroup 3 2 syms_5; AGroup 10896 5 syms_150;
     AGroup 10894 36 syms_232]);
   (302082, 4, [AGroup 5 1 [sym_ppDirective]; AGroup 3 2 syms_5; AGroup 10820 5 syms_150;
     AGroup 10818 36 syms_232]);
   (302135, 4, [AGroup 5 1 [sym_ppDirective]; AGroup 3 2 syms_5; AGroup 18737 5 syms_150;
     AGroup 18735 36 syms_232]);
   (302188, 4, [AGroup 5 1 [sym_ppDirective]; AGroup 3 2 syms_5; AGroup 10742 5 syms_150;
     AGroup 10740 36 syms_231]);
   (302241, 4, [AGroup 5 1 [sym_ppDirective]; AGroup 3 2 syms_5; AGroup 10912 5 syms_150;
     AGroup 10910 36 syms_240]);
   (302294, 4, [AGroup 5 1 [sym_ppDirective]; AGroup 3 2 syms_5; AGroup 10916 5 syms_150;
     AGroup 10914 35 syms_192]);
   (302346, 4, [AGroup 5 1 [sym_ppDirective]; AGroup 3 2 syms_5; AGroup 10820 5 syms_150;
     AGroup 10818 35 syms_192]);
   (302398, 4, [AGroup 5 1 [sym_ppDirective]; AGroup 3 2 syms_5; AGroup 18782 5 syms_150;
     AGroup 18780 35 syms_192]);
   (302450, 4, [AGroup 5 1 [sym_ppDirective]; AGroup 3 2 syms_5; AGroup 10804 5 syms_150;
     AGroup 10802 35 syms_192]);
   (302502, 4, [AGroup 5 1 [sym_ppDirective]; AGroup 3 2 syms_5; AGroup 10856 5 syms_150;
     AGroup 10854 35 syms_192]);
   (302554, 4, [AGroup 5 1 [sym_ppDirective]; AGroup 3 2 syms_5; AGroup 10794 5 syms_150;
     AGroup 10792 35 syms_192]);
   (302606, 23, [AGroup 5 1 [sym_ppDirective]; AGroup 13347 1 [anon_sym_LBRACK];
     AGroup 13365 1 [sym_identifier]; AGroup 13367 1 [sym_kGeneric];
     AGroup 13369 1 [sym_kOperator]; AGroup 13379 1 [sym_kClass]; AGroup 13391 1 [sym_kProperty];
     AGroup 13395 1 [sym_kType]; AGroup 19289 1 [aux_sym_ppUsesBlock_token1];
     SGroup 32 1 [sym__ppIf]; SGroup 9779 1 [sym_ppBlock]; SGroup 9835 1 [sym__declOperator];
     SGroup 10247 1 [sym__declProc]; SGroup 10617 1 [sym_rttiAttributes];
     SGroup 10730 1 [aux_sym_rttiAttributes_repeat2];
     SGroup 13987 1 [aux_sym_genericArg_repeat1]; AGroup 3 2 syms_5; AGroup 13381 2 syms_65;
     AGroup 13393 2 syms_66; SGroup 7758 2 syms_68; AGroup 13383 4 syms_3; SGroup 7071 6 syms_71;
     AGroup 19292 9 syms_244]);
   (302696, 27, [AGroup 5 1 [sym_ppDirective]; AGroup 9 1 [anon_sym_LBRACK];
     AGroup 11 1 [aux_sym_ppUsesBlock_token1]; AGroup 13 1 [sym_kGeneric];
     AGroup 15 1 [sym_kOperator]; AGroup 18756 1 [sym_kClass]; AGroup 18760 1 [sym_kExports];
     AGroup 18762 1 [sym_kLabel]; AGroup 18766 1 [sym_kType]; AGroup 18768 1 [sym_kUses];
     AGroup 19294 1 [sym_kAsm]; AGroup 19296 1 [sym_kBegin]; SGroup 9 1 [sym__ppIf];
     SGroup 6432 1 [sym_declProc]; SGroup 10355 1 [sym__declProc]; SGroup 10369 1 [sym_blockTr];
     SGroup 10436 1 [sym__defProcImpl]; SGroup 10439 1 [sym__defProcBody];
     SGroup 10443 1 [sym__declOperator]; SGroup 11110 1 [sym_rttiAttributes];
     SGroup 11216 1 [aux_sym_rttiAttributes_repeat2]; SGroup 14152 1 [sym_asmTr];
     AGroup 3 2 syms_5; AGroup 18758 2 syms_65; AGroup 18764 2 syms_66; AGroup 23 4 syms_3;
     SGroup 6606 11 syms_210]);
   (302794, 27, [AGroup 5 1 [sym_ppDirective]; AGroup 9 1 [anon_sym_LBRACK];
     AGroup 11 1 [aux_sym_ppUsesBlock_token1]; AGroup 13 1 [sym_kGeneric];
     AGroup 15 1 [sym_kOperator]; AGroup 18756 1 [sym_kClass]; AGroup 18760 1 [sym_kExports];
     AGroup 18762 1 [sym_kLabel]; AGroup 18766 1 [sym_kType]; AGroup 18768 1 [sym_kUses];
     AGroup 19294 1 [sym_kAsm]; AGroup 19296 1 [sym_kBegin]; SGroup 8 1 [sym__ppIf];
     SGroup 6432 1 [sym_declProc]; SGroup 10355 1 [sym__declProc]; SGroup 10372 1 [sym_blockTr];
     SGroup 10413 1 [sym__defProcBody]; SGroup 10430 1 [sym__defProcImpl];
     SGroup 10443 1 [sym__declOperator]; SGroup 11110 1 [sym_rttiAttributes];
     SGroup 11216 1 [aux_sym_rttiAttributes_repeat2]; SGroup 15022 1 [sym_asmTr];
     AGroup 3 2 syms_5; AGroup 18758 2 syms_65; AGroup 18764 2 syms_66; AGroup 23 4 syms_3;
     SGroup 6527 11 syms_210]);
   (302892, 4, [AGroup 5 1 [sym_ppDirective]; AGroup 3 2 syms_5; AGroup 10888 5 syms_150;
     AGroup 10886 35 syms_192]);
   (302944, 23, [AGroup 5 1 [sym_ppDirective]; AGroup 13347 1 [anon_sym_LBRACK];
     AGroup 13365 1 [sym_identifier]; AGroup 13367 1 [sym_kGeneric];
     AGroup 13369 1 [sym_kOperator]; AGroup 13379 1 [sym_kClass]; AGroup 13391 1 [sym_kProperty];
     AGroup 13395 1 [sym_kType]; AGroup 19298 1 [aux_sym_ppUsesBlock_token1];
     SGroup 32 1 [sym__ppIf]; SGroup 9779 1 [sym_ppBlock]; SGroup 9835 1 [sym__declOperator];
     SGroup 10247 1 [sym__declProc]; SGroup 10617 1 [sym_rttiAttributes];
     SGroup 10730 1 [aux_sym_rttiAttributes_repeat2];
     SGroup 13987 1 [aux_sym_genericArg_repeat1]; AGroup 3 2 syms_5; AGroup 13381 2 syms_65;
     AGroup 13393 2 syms_66; SGroup 6456 2 syms_68; AGroup 13383 4 syms_3; SGroup 7067 6 syms_71;
     AGroup 19301 9 syms_244]);
   (303034, 4, [AGroup 5 1 [sym_ppDirective]; AGroup 3 2 syms_5; AGroup 18782 5 syms_150;
     AGroup 18780 35 syms_245]);
   (303086, 4, [AGroup 5 1 [sym_ppDirective]; AGroup 3 2 syms_5; AGroup 10912 5 syms_150;
     AGroup 10910 35 syms_192]);
   (303138, 4, [AGroup 5 1 [sym_ppDirective]; AGroup 3 2 syms_5; AGroup 10904 5 syms_150;
     AGroup 10902 35 syms_245]);
   (303190, 27, [AGroup 5 1 [sym_ppDirective]; AGroup 9 1 [anon_sym_LBRACK];
     AGroup 11 1 [aux_sym_ppUsesBlock_token1]; AGroup 13 1 [sym_kGeneric];
     AGroup 15 1 [sym_kOperator]; AGroup 18756 1 [sym_kClass]; AGroup 18760 1 [sym_kExports];
     AGroup 18762 1 [sym_kLabel]; AGroup 18766 1 [sym_kType]; AGroup 18768 1 [sym_kUses];
     AGroup 19294 1 [sym_kAsm]; AGroup 19296 1 [sym_kBegin]; SGroup 5 1 [sym__ppIf];
     SGroup 6432 1 [sym_declProc]; SGroup 10262 1 [sym__defProcImpl];
     SGroup 10265 1 [sym__defProcBody]; SGroup 10355 1 [sym__declProc];
     SGroup 10400 1 [sym_blockTr]; SGroup 10443 1 [sym__declOperator];
     SGroup 11110 1 [sym_rttiAttributes]; SGroup 11216 1 [aux_sym_rttiAttributes_repeat2];
     SGroup 14790 1 [sym_asmTr]; AGroup 3 2 syms_5; AGroup 18758 2 syms_65;
     AGroup 18764 2 syms_66; AGroup 23 4 syms_3; SGroup 6482 11 syms_210])
  ].

(** States 6359 to 6458. *)
Definition small_runs_6359 : list small_run :=
  [
   (303288, 27, [AGroup 5 1 [sym_ppDirective]; AGroup 9 1 [anon_sym_LBRACK];
     AGroup 11 1 [aux_sym_ppUsesBlock_token1]; AGroup 13 1 [sym_kGeneric];
     AGroup 15 1 [sym_kOperator]; AGroup 18756 1 [sym_kClass]; AGroup 18760 1 [sym_kExports];
     AGroup 18762 1 [sym_kLabel]; AGroup 18766 1 [sym_kType]; AGroup 18768 1 [sym_kUses];
     AGroup 19294 1 [sym_kAsm]; AGroup 19296 1 [sym_kBegin]; SGroup 8 1 [sym__ppIf];
     SGroup 6432 1 [sym_declProc]; SGroup 10355 1 [sym__declProc]; SGroup 10372 1 [sym_blockTr];
     SGroup 10413 1 [sym__defProcBody]; SGroup 10443 1 [sym__declOperator];
     SGroup 10476 1 [sym__defProcImpl]; SGroup 11110 1 [sym_rttiAttributes];
     SGroup 11216 1 [aux_sym_rttiAttributes_repeat2]; SGroup 15022 1 [sym_asmTr];
     AGroup 3 2 syms_5; AGroup 18758 2 syms_65; AGroup 18764 2 syms_66; AGroup 23 4 syms_3;
     SGroup 6527 11 syms_210]);
   (303386, 5, [AGroup 5 1 [sym_ppDirective]; AGroup 19303 1 [sym_kElse]; AGroup 3 2 syms_5;
     AGroup 10722 5 syms_150; AGroup 10720 34 syms_246]);
   (303440, 4, [AGroup 5 1 [sym_ppDirective]; AGroup 3 2 syms_5; AGroup 10892 5 syms_150;
     AGroup 10890 35 syms_192]);
   (303492, 4, [AGroup 5 1 [sym_ppDirective]; AGroup 3 2 syms_5; AGroup 10892 5 syms_150;
     AGroup 10890 35 syms_245]);
   (303544, 27, [AGroup 5 1 [sym_ppDirective]; AGroup 9 1 [anon_sym_LBRACK];
     AGroup 11 1 [aux_sym_ppUsesBlock_token1]; AGroup 13 1 [sym_kGeneric];
     AGroup 15 1 [sym_kOperator]; AGroup 18756 1 [sym_kClass]; AGroup 18760 1 [sym_kExports];
     AGroup 18762 1 [sym_kLabel]; AGroup 18766 1 [sym_kType]; AGroup 18768 1 [sym_kUses];
     AGroup 19294 1 [sym_kAsm]; AGroup 19296 1 [sym_kBegin]; SGroup 10 1 [sym__ppIf];
     SGroup 6432 1 [sym_declProc]; SGroup 10355 1 [sym__declProc]; SGroup 10380 1 [sym_blockTr];
     SGroup 10443 1 [sym__declOperator]; SGroup 10449 1 [sym__defProcBody];
     SGroup 10454 1 [sym__defProcImpl]; SGroup 11110 1 [sym_rttiAttributes];
     SGroup 11216 1 [aux_sym_rttiAttributes_repeat2]; SGroup 14155 1 [sym_asmTr];
     AGroup 3 2 syms_5; AGroup 18758 2 syms_65; AGroup 18764 2 syms_66; AGroup 23 4 syms_3;
     SGroup 6588 11 syms_210]);
   (303642, 4, [AGroup 5 1 [sym_ppDirective]; AGroup 3 2 syms_5; AGroup 10768 5 syms_150;
     AGroup 10766 35 syms_192]);
   (303694, 4, [AGroup 5 1 [sym_ppDirective]; AGroup 3 2 syms_5; AGroup 10848 5 syms_150;
     AGroup 10846 35 syms_192]);
   (303746, 4, [AGroup 5 1 [sym_ppDirective]; AGroup 3 2 syms_5; AGroup 10896 5 syms_150;
     AGroup 10894 35 syms_192]);
   (303798, 27, [AGroup 5 1 [sym_ppDirective]; AGroup 9 1 [anon_sym_LBRACK];
     AGroup 11 1 [aux_sym_ppUsesBlock_token1]; AGroup 13 1 [sym_kGeneric];
     AGroup 15 1 [sym_kOperator]; AGroup 18756 1 [sym_kClass]; AGroup 18760 1 [sym_kExports];
     AGroup 18762 1 [sym_kLabel]; AGroup 18766 1 [sym_kType]; AGroup 18768 1 [sym_kUses];
     AGroup 19294 1 [sym_kAsm]; AGroup 19296 1 [sym_kBegin]; SGroup 4 1 [sym__ppIf];
     SGroup 6432 1 [sym_declProc]; SGroup 10355 1 [sym__declProc]; SGroup 10364 1 [sym_blockTr];
     SGroup 10443 1 [sym__declOperator]; SGroup 11110 1 [sym_rttiAttributes];
     SGroup 11216 1 [aux_sym_rttiAttributes_repeat2]; SGroup 13173 1 [sym__defProcBody];
     SGroup 13325 1 [sym__defProcImpl]; SGroup 15378 1 [sym_asmTr]; AGroup 3 2 syms_5;
     AGroup 18758 2 syms_65; AGroup 18764 2 syms_66; AGroup 23 4 syms_3; SGroup 6469 11 syms_210]);
   (303896, 4, [AGroup 5 1 [sym_ppDirective]; AGroup 3 2 syms_5; AGroup 10916 5 syms_150;
     AGroup 10914 35 syms_245]);
   (303948, 4, [AGroup 5 1 [sym_ppDirective]; AGroup 3 2 syms_5; AGroup 10900 5 syms_150;
     AGroup 10898 35 syms_192]);
   (304000, 27, [AGroup 5 1 [sym_ppDirective]; AGroup 9 1 [anon_sym_LBRACK];
     AGroup 11 1 [aux_sym_ppUsesBlock_token1]; AGroup 13 1 [sym_kGeneric];
     AGroup 15 1 [sym_kOperator]; AGroup 18756 1 [sym_kClass]; AGroup 18760 1 [sym_kExports];
     AGroup 18762 1 [sym_kLabel]; AGroup 18766 1 [sym_kType]; AGroup 18768 1 [sym_kUses];
     AGroup 19294 1 [sym_kAsm]; AGroup 19296 1 [sym_kBegin]; SGroup 5 1 [sym__ppIf];
     SGroup 6432 1 [sym_declProc]; SGroup 10265 1 [sym__defProcBody];
     SGroup 10311 1 [sym__defProcImpl]; SGroup 10355 1 [sym__declProc];
     SGroup 10400 1 [sym_blockTr]; SGroup 10443 1 [sym__declOperator];
     SGroup 11110 1 [sym_rttiAttributes]; SGroup 11216 1 [aux_sym_rttiAttributes_repeat2];
     SGroup 14790 1 [sym_asmTr]; AGroup 3 2 syms_5; AGroup 18758 2 syms_65;
     AGroup 18764 2 syms_66; AGroup 23 4 syms_3; SGroup 6482 11 syms_210]);
   (304098, 27, [AGroup 5 1 [sym_ppDirective]; AGroup 9 1 [anon_sym_LBRACK];
     AGroup 11 1 [aux_sym_ppUsesBlock_token1]; AGroup 13 1 [sym_kGeneric];
     AGroup 15 1 [sym_kOperator]; AGroup 18756 1 [sym_kClass]; AGroup 18760 1 [sym_kExports];
     AGroup 18762 1 [sym_kLabel]; AGroup 18766 1 [sym_kType]; AGroup 18768 1 [sym_kUses];
     AGroup 19294 1 [sym_kAsm]; AGroup 19296 1 [sym_kBegin]; SGroup 6 1 [sym__ppIf];
     SGroup 1330 1 [sym__defProcImpl]; SGroup 1351 1 [sym__defProcBody];
     SGroup 6432 1 [sym_declProc]; SGroup 10355 1 [sym__declProc]; SGroup 10392 1 [sym_blockTr];
     SGroup 10443 1 [sym__declOperator]; SGroup 11110 1 [sym_rttiAttributes];
     SGroup 11216 1 [aux_sym_rttiAttributes_repeat2]; SGroup 15019 1 [sym_asmTr];
     AGroup 3 2 syms_5; AGroup 18758 2 syms_65; AGroup 18764 2 syms_66; AGroup 23 4 syms_3;
     SGroup 6504 11 syms_210]);
   (304196, 4, [AGroup 5 1 [sym_ppDirective]; AGroup 3 2 syms_5; AGroup 10768 5 syms_150;
     AGroup 10766 35 syms_245]);
   (304248, 4, [AGroup 5 1 [sym_ppDirective]; AGroup 3 2 syms_5; AGroup 10828 5 syms_150;
     AGroup 10826 35 syms_192]);
   (304300, 6, [AGroup 5 1 [sym_ppDirective]; AGroup 3 2 syms_5; AGroup 19305 2 syms_186;
     SGroup 6374 2 syms_187; AGroup 18703 5 syms_150; AGroup 18701 31 syms_247]);
   (304356, 4, [AGroup 5 1 [sym_ppDirective]; AGroup 3 2 syms_5; AGroup 10848 5 syms_150;
     AGroup 10846 35 syms_245]);
   (304408, 4, [AGroup 5 1 [sym_ppDirective]; AGroup 3 2 syms_5; AGroup 10852 5 syms_150;
     AGroup 10850 35 syms_192]);
   (304460, 27, [AGroup 5 1 [sym_ppDirective]; AGroup 9 1 [anon_sym_LBRACK];
     AGroup 11 1 [aux_sym_ppUsesBlock_token1]; AGroup 13 1 [sym_kGeneric];
     AGroup 15 1 [sym_kOperator]; AGroup 18756 1 [sym_kClass]; AGroup 18760 1 [sym_kExports];
     AGroup 18762 1 [sym_kLabel]; AGroup 18766 1 [sym_kType]; AGroup 18768 1 [sym_kUses];
     AGroup 19294 1 [sym_kAsm]; AGroup 19296 1 [sym_kBegin]; SGroup 6 1 [sym__ppIf];
     SGroup 1351 1 [sym__defProcBody]; SGroup 1353 1 [sym__defProcImpl];
     SGroup 6432 1 [sym_declProc]; SGroup 10355 1 [sym__declProc]; SGroup 10392 1 [sym_blockTr];
     SGroup 10443 1 [sym__declOperator]; SGroup 11110 1 [sym_rttiAttributes];
     SGroup 11216 1 [aux_sym_rttiAttributes_repeat2]; SGroup 15019 1 [sym_asmTr];
     AGroup 3 2 syms_5; AGroup 18758 2 syms_65; AGroup 18764 2 syms_66; AGroup 23 4 syms_3;
     SGroup 6504 11 syms_210]);
   (304558, 4, [AGroup 5 1 [sym_ppDirective]; AGroup 3 2 syms_5; AGroup 10880 5 syms_150;
     AGroup 10878 35 syms_192]);
   (304610, 4, [AGroup 5 1 [sym_ppDirective]; AGroup 3 2 syms_5; AGroup 10808 5 syms_150;
     AGroup 10806 35 syms_192]);
   (304662, 4, [AGroup 5 1 [sym_ppDirective]; AGroup 3 2 syms_5; AGroup 10828 5 syms_150;
     AGroup 10826 35 syms_245]);
   (304714, 4, [AGroup 5 1 [sym_ppDirective]; AGroup 3 2 syms_5; AGroup 16467 7 syms_34;
     AGroup 16465 33 syms_248]);
   (304766, 4, [AGroup 5 1 [sym_ppDirective]; AGroup 3 2 syms_5; AGroup 10904 5 syms_150;
     AGroup 10902 35 syms_192]);
   (304818, 4, [AGroup 5 1 [sym_ppDirective]; AGroup 3 2 syms_5; AGroup 10896 5 syms_150;
     AGroup 10894 35 syms_245]);
   (304870, 4, [AGroup 5 1 [sym_ppDirective]; AGroup 3 2 syms_5; AGroup 10820 5 syms_150;
     AGroup 10818 35 syms_245]);
   (304922, 4, [AGroup 5 1 [sym_ppDirective]; AGroup 3 2 syms_5; AGroup 10860 5 syms_150;
     AGroup 10858 35 syms_192]);
   (304974, 4, [AGroup 5 1 [sym_ppDirective]; AGroup 3 2 syms_5; AGroup 10880 5 syms_150;
     AGroup 10878 35 syms_245]);
   (305026, 27, [AGroup 5 1 [sym_ppDirective]; AGroup 9 1 [anon_sym_LBRACK];
     AGroup 11 1 [aux_sym_ppUsesBlock_token1]; AGroup 13 1 [sym_kGeneric];
     AGroup 15 1 [sym_kOperator]; AGroup 18756 1 [sym_kClass]; AGroup 18760 1 [sym_kExports];
     AGroup 18762 1 [sym_kLabel]; AGroup 18766 1 [sym_kType]; AGroup 18768 1 [sym_kUses];
     AGroup 19294 1 [sym_kAsm]; AGroup 19296 1 [sym_kBegin]; SGroup 10 1 [sym__ppIf];
     SGroup 6432 1 [sym_declProc]; SGroup 10355 1 [sym__declProc]; SGroup 10380 1 [sym_blockTr];
     SGroup 10443 1 [sym__declOperator]; SGroup 10449 1 [sym__defProcBody];
     SGroup 10477 1 [sym__defProcImpl]; SGroup 11110 1 [sym_rttiAttributes];
     SGroup 11216 1 [aux_sym_rttiAttributes_repeat2]; SGroup 14155 1 [sym_asmTr];
     AGroup 3 2 syms_5; AGroup 18758 2 syms_65; AGroup 18764 2 syms_66; AGroup 23 4 syms_3;
     SGroup 6588 11 syms_210]);
   (305124, 7, [AGroup 5 1 [sym_ppDirective]; AGroup 7974 1 [anon_sym_POUND]; AGroup 3 2 syms_5;
     AGroup 19308 2 syms_6; SGroup 6395 3 syms_13; AGroup 15235 7 syms_34;
     AGroup 15233 27 syms_72]);
   (305182, 4, [AGroup 5 1 [sym_ppDirective]; AGroup 3 2 syms_5; AGroup 10712 5 syms_150;
     AGroup 10710 35 syms_245]);
   (305234, 4, [AGroup 5 1 [sym_ppDirective]; AGroup 3 2 syms_5; AGroup 10734 5 syms_150;
     AGroup 10732 35 syms_245]);
   (305286, 4, [AGroup 5 1 [sym_ppDirective]; AGroup 3 2 syms_5; AGroup 10712 5 syms_150;
     AGroup 10710 35 syms_192]);
   (305338, 4, [AGroup 5 1 [sym_ppDirective]; AGroup 3 2 syms_5; AGroup 10734 5 syms_150;
     AGroup 10732 35 syms_192]);
   (305390, 4, [AGroup 5 1 [sym_ppDirective]; AGroup 3 2 syms_5; AGroup 10734 5 syms_150;
     AGroup 10732 35 syms_245]);
   (305442, 4, [AGroup 5 1 [sym_ppDirective]; AGroup 3 2 syms_5; AGroup 18782 5 syms_150;
     AGroup 18780 35 syms_249]);
   (305494, 7, [AGroup 5 1 [sym_ppDirective]; AGroup 19313 1 [anon_sym_POUND]; AGroup 3 2 syms_5;
     AGroup 19310 2 syms_6; SGroup 6395 3 syms_13; AGroup 15241 7 syms_34;
     AGroup 15239 27 syms_72]);
   (305552, 4, [AGroup 5 1 [sym_ppDirective]; AGroup 3 2 syms_5; AGroup 10734 5 syms_150;
     AGroup 10732 35 syms_192]);
   (305604, 4, [AGroup 5 1 [sym_ppDirective]; AGroup 3 2 syms_5; AGroup 10900 5 syms_150;
     AGroup 10898 35 syms_245]);
   (305656, 4, [AGroup 5 1 [sym_ppDirective]; AGroup 3 2 syms_5; AGroup 10742 5 syms_150;
     AGroup 10740 35 syms_245]);
   (305708, 27, [AGroup 5 1 [sym_ppDirective]; AGroup 9 1 [anon_sym_LBRACK];
     AGroup 11 1 [aux_sym_ppUsesBlock_token1]; AGroup 13 1 [sym_kGeneric];
     AGroup 15 1 [sym_kOperator]; AGroup 18756 1 [sym_kClass]; AGroup 18760 1 [sym_kExports];
     AGroup 18762 1 [sym_kLabel]; AGroup 18766 1 [sym_kType]; AGroup 18768 1 [sym_kUses];
     AGroup 19294 1 [sym_kAsm]; AGroup 19296 1 [sym_kBegin]; SGroup 9 1 [sym__ppIf];
     SGroup 6432 1 [sym_declProc]; SGroup 10355 1 [sym__declProc]; SGroup 10369 1 [sym_blockTr];
     SGroup 10420 1 [sym__defProcImpl]; SGroup 10439 1 [sym__defProcBody];
     SGroup 10443 1 [sym__declOperator]; SGroup 11110 1 [sym_rttiAttributes];
     SGroup 11216 1 [aux_sym_rttiAttributes_repeat2]; SGroup 14152 1 [sym_asmTr];
     AGroup 3 2 syms_5; AGroup 18758 2 syms_65; AGroup 18764 2 syms_66; AGroup 23 4 syms_3;
     SGroup 6606 11 syms_210]);
   (305806, 23, [AGroup 5 1 [sym_ppDirective]; AGroup 13347 1 [anon_sym_LBRACK];
     AGroup 13365 1 [sym_identifier]; AGroup 13367 1 [sym_kGeneric];
     AGroup 13369 1 [sym_kOperator]; AGroup 13379 1 [sym_kClass]; AGroup 13391 1 [sym_kProperty];
     AGroup 13395 1 [sym_kType]; AGroup 19316 1 [aux_sym_ppUsesBlock_token1];
     SGroup 32 1 [sym__ppIf]; SGroup 9779 1 [sym_ppBlock]; SGroup 9835 1 [sym__declOperator];
     SGroup 10247 1 [sym__declProc]; SGroup 10617 1 [sym_rttiAttributes];
     SGroup 10730 1 [aux_sym_rttiAttributes_repeat2];
     SGroup 13987 1 [aux_sym_genericArg_repeat1]; AGroup 3 2 syms_5; AGroup 13381 2 syms_65;
     AGroup 13393 2 syms_66; SGroup 7758 2 syms_68; AGroup 13383 4 syms_3; SGroup 7097 6 syms_71;
     AGroup 19319 9 syms_244]);
   (305896, 4, [AGroup 5 1 [sym_ppDirective]; AGroup 3 2 syms_5; AGroup 10752 5 syms_150;
     AGroup 10750 35 syms_245]);
   (305948, 4, [AGroup 5 1 [sym_ppDirective]; AGroup 3 2 syms_5; AGroup 10762 5 syms_150;
     AGroup 10760 35 syms_245]);
   (306000, 4, [AGroup 5 1 [sym_ppDirective]; AGroup 3 2 syms_5; AGroup 10876 5 syms_150;
     AGroup 10874 35 syms_192]);
   (306052, 27, [AGroup 5 1 [sym_ppDirective]; AGroup 9 1 [anon_sym_LBRACK];
     AGroup 11 1 [aux_sym_ppUsesBlock_token1]; AGroup 13 1 [sym_kGeneric];
     AGroup 15 1 [sym_kOperator]; AGroup 18756 1 [sym_kClass]; AGroup 18760 1 [sym_kExports];
     AGroup 18762 1 [sym_kLabel]; AGroup 18766 1 [sym_kType]; AGroup 18768 1 [sym_kUses];
     AGroup 19294 1 [sym_kAsm]; AGroup 19296 1 [sym_kBegin]; SGroup 10 1 [sym__ppIf];
     SGroup 6432 1 [sym_declProc]; SGroup 10355 1 [sym__declProc]; SGroup 10380 1 [sym_blockTr];
     SGroup 10412 1 [sym__defProcImpl]; SGroup 10443 1 [sym__declOperator];
     SGroup 10449 1 [sym__defProcBody]; SGroup 11110 1 [sym_rttiAttributes];
     SGroup 11216 1 [aux_sym_rttiAttributes_repeat2]; SGroup 14155 1 [sym_asmTr];
     AGroup 3 2 syms_5; AGroup 18758 2 syms_65; AGroup 18764 2 syms_66; AGroup 23 4 syms_3;
     SGroup 6588 11 syms_210]);
   (306150, 4, [AGroup 5 1 [sym_ppDirective]; AGroup 3 2 syms_5; AGroup 10776 5 syms_150;
     AGroup 10774 35 syms_245]);
   (306202, 4, [AGroup 5 1 [sym_ppDirective]; AGroup 3 2 syms_5; AGroup 10844 5 syms_150;
     AGroup 10842 35 syms_245]);
   (306254, 4, [AGroup 5 1 [sym_ppDirective]; AGroup 3 2 syms_5; AGroup 10780 5 syms_150;
     AGroup 10778 35 syms_245]);
   (306306, 4, [AGroup 5 1 [sym_ppDirective]; AGroup 3 2 syms_5; AGroup 10786 5 syms_150;
     AGroup 10784 35 syms_245]);
   (306358, 4, [AGroup 5 1 [sym_ppDirective]; AGroup 3 2 syms_5; AGroup 10840 5 syms_150;
     AGroup 10838 35 syms_192]);
   (306410, 4, [AGroup 5 1 [sym_ppDirective]; AGroup 3 2 syms_5; AGroup 10794 5 syms_150;
     AGroup 10792 35 syms_245]);
   (306462, 4, [AGroup 5 1 [sym_ppDirective]; AGroup 3 2 syms_5; AGroup 10804 5 syms_150;
     AGroup 10802 35 syms_245]);
   (306514, 5, [AGroup 5 1 [sym_ppDirective]; AGroup 19321 1 [sym_kElse]; AGroup 3 2 syms_5;
     AGroup 10722 5 syms_150; AGroup 10720 34 syms_246]);
   (306568, 4, [AGroup 5 1 [sym_ppDirective]; AGroup 3 2 syms_5; AGroup 18778 5 syms_150;
     AGroup 18776 35 syms_192]);
   (306620, 4, [AGroup 5 1 [sym_ppDirective]; AGroup 3 2 syms_5; AGroup 10908 5 syms_150;
     AGroup 10906 35 syms_192]);
   (306672, 4, [AGroup 5 1 [sym_ppDirective]; AGroup 3 2 syms_5; AGroup 10808 5 syms_150;
     AGroup 10806 35 syms_245]);
   (306724, 7, [AGroup 5 1 [sym_ppDirective]; AGroup 7428 1 [anon_sym_POUND]; AGroup 3 2 syms_5;
     AGroup 19323 2 syms_6; SGroup 6418 3 syms_13; AGroup 15235 7 syms_34;
     AGroup 15233 27 syms_77]);
   (306782, 4, [AGroup 5 1 [sym_ppDirective]; AGroup 3 2 syms_5; AGroup 10742 5 syms_150;
     AGroup 10740 35 syms_192]);
   (306834, 7, [AGroup 5 1 [sym_ppDirective]; AGroup 19328 1 [anon_sym_POUND]; AGroup 3 2 syms_5;
     AGroup 19325 2 syms_6; SGroup 6418 3 syms_13; AGroup 15241 7 syms_34;
     AGroup 15239 27 syms_77]);
   (306892, 4, [AGroup 5 1 [sym_ppDirective]; AGroup 3 2 syms_5; AGroup 10884 5 syms_150;
     AGroup 10882 35 syms_192]);
   (306944, 4, [AGroup 5 1 [sym_ppDirective]; AGroup 3 2 syms_5; AGroup 10752 5 syms_150;
     AGroup 10750 35 syms_192]);
   (306996, 23, [AGroup 5 1 [sym_ppDirective]; AGroup 13347 1 [anon_sym_LBRACK];
     AGroup 13365 1 [sym_identifier]; AGroup 13367 1 [sym_kGeneric];
     AGroup 13369 1 [sym_kOperator]; AGroup 13379 1 [sym_kClass]; AGroup 13391 1 [sym_kProperty];
     AGroup 13395 1 [sym_kType]; AGroup 19331 1 [aux_sym_ppUsesBlock_token1];
     SGroup 32 1 [sym__ppIf]; SGroup 9779 1 [sym_ppBlock]; SGroup 9835 1 [sym__declOperator];
     SGroup 10247 1 [sym__declProc]; SGroup 10617 1 [sym_rttiAttributes];
     SGroup 10730 1 [aux_sym_rttiAttributes_repeat2];
     SGroup 13987 1 [aux_sym_genericArg_repeat1]; AGroup 3 2 syms_5; AGroup 13381 2 syms_65;
     AGroup 13393 2 syms_66; SGroup 7758 2 syms_68; AGroup 13383 4 syms_3; SGroup 7057 6 syms_71;
     AGroup 19334 9 syms_244]);
   (307086, 4, [AGroup 5 1 [sym_ppDirective]; AGroup 3 2 syms_5; AGroup 10762 5 syms_150;
     AGroup 10760 35 syms_192]);
   (307138, 4, [AGroup 5 1 [sym_ppDirective]; AGroup 3 2 syms_5; AGroup 18737 5 syms_150;
     AGroup 18735 35 syms_192]);
   (307190, 4, [AGroup 5 1 [sym_ppDirective]; AGroup 3 2 syms_5; AGroup 10776 5 syms_150;
     AGroup 10774 35 syms_192]);
   (307242, 4, [AGroup 5 1 [sym_ppDirective]; AGroup 3 2 syms_5; AGroup 10708 5 syms_150;
     AGroup 10706 35 syms_192]);
   (307294, 27, [AGroup 5 1 [sym_ppDirective]; AGroup 9 1 [anon_sym_LBRACK];
     AGroup 11 1 [aux_sym_ppUsesBlock_token1]; AGroup 13 1 [sym_kGeneric];
     AGroup 15 1 [sym_kOperator]; AGroup 18756 1 [sym_kClass]; AGroup 18760 1 [sym_kExports];
     AGroup 18762 1 [sym_kLabel]; AGroup 18766 1 [sym_kType]; AGroup 18768 1 [sym_kUses];
     AGroup 19294 1 [sym_kAsm]; AGroup 19296 1 [sym_kBegin]; SGroup 5 1 [sym__ppIf];
     SGroup 6432 1 [sym_declProc]; SGroup 10249 1 [sym__defProcImpl];
     SGroup 10265 1 [sym__defProcBody]; SGroup 10355 1 [sym__declProc];
     SGroup 10400 1 [sym_blockTr]; SGroup 10443 1 [sym__declOperator];
     SGroup 11110 1 [sym_rttiAttributes]; SGroup 11216 1 [aux_sym_rttiAttributes_repeat2];
     SGroup 14790 1 [sym_asmTr]; AGroup 3 2 syms_5; AGroup 18758 2 syms_65;
     AGroup 18764 2 syms_66; AGroup 23 4 syms_3; SGroup 6482 11 syms_210]);
   (307392, 4, [AGroup 5 1 [sym_ppDirective]; AGroup 3 2 syms_5; AGroup 10812 5 syms_150;
     AGroup 10810 35 syms_245]);
   (307444, 4, [AGroup 5 1 [sym_ppDirective]; AGroup 3 2 syms_5; AGroup 10844 5 syms_150;
     AGroup 10842 35 syms_192]);
   (307496, 4, [AGroup 5 1 [sym_ppDirective]; AGroup 3 2 syms_5; AGroup 10780 5 syms_150;
     AGroup 10778 35 syms_192]);
   (307548, 4, [AGroup 5 1 [sym_ppDirective]; AGroup 3 2 syms_5; AGroup 10722 5 syms_150;
     AGroup 10720 35 syms_245]);
   (307600, 4, [AGroup 5 1 [sym_ppDirective]; AGroup 3 2 syms_5; AGroup 10786 5 syms_150;
     AGroup 10784 35 syms_192]);
   (307652, 27, [AGroup 5 1 [sym_ppDirective]; AGroup 9 1 [anon_sym_LBRACK];
     AGroup 11 1 [aux_sym_ppUsesBlock_token1]; AGroup 13 1 [sym_kGeneric];
     AGroup 15 1 [sym_kOperator]; AGroup 18756 1 [sym_kClass]; AGroup 18760 1 [sym_kExports];
     AGroup 18762 1 [sym_kLabel]; AGroup 18766 1 [sym_kType]; AGroup 18768 1 [sym_kUses];
     AGroup 19294 1 [sym_kAsm]; AGroup 19296 1 [sym_kBegin]; SGroup 8 1 [sym__ppIf];
     SGroup 6432 1 [sym_declProc]; SGroup 10355 1 [sym__declProc]; SGroup 10372 1 [sym_blockTr];
     SGroup 10408 1 [sym__defProcImpl]; SGroup 10413 1 [sym__defProcBody];
     SGroup 10443 1 [sym__declOperator]; SGroup 11110 1 [sym_rttiAttributes];
     SGroup 11216 1 [aux_sym_rttiAttributes_repeat2]; SGroup 15022 1 [sym_asmTr];
     AGroup 3 2 syms_5; AGroup 18758 2 syms_65; AGroup 18764 2 syms_66; AGroup 23 4 syms_3;
     SGroup 6527 11 syms_210]);
   (307750, 23, [AGroup 5 1 [sym_ppDirective]; AGroup 13347 1 [anon_sym_LBRACK];
     AGroup 13365 1 [sym_identifier]; AGroup 13367 1 [sym_kGeneric];
     AGroup 13369 1 [sym_kOperator]; AGroup 13379 1 [sym_kClass]; AGroup 13391 1 [sym_kProperty];
     AGroup 13395 1 [sym_kType]; AGroup 19336 1 [aux_sym_ppUsesBlock_token1];
     SGroup 32 1 [sym__ppIf]; SGroup 9779 1 [sym_ppBlock]; SGroup 9835 1 [sym__declOperator];
     SGroup 10247 1 [sym__declProc]; SGroup 10617 1 [sym_rttiAttributes];
     SGroup 10730 1 [aux_sym_rttiAttributes_repeat2];
     SGroup 13987 1 [aux_sym_genericArg_repeat1]; AGroup 3 2 syms_5; AGroup 13381 2 syms_65;
     AGroup 13393 2 syms_66; SGroup 6421 2 syms_68; AGroup 13383 4 syms_3; SGroup 7099 6 syms_71;
     AGroup 19339 9 syms_244]);
   (307840, 4, [AGroup 5 1 [sym_ppDirective]; AGroup 3 2 syms_5; AGroup 10852 5 syms_150;
     AGroup 10850 35 syms_245]);
   (307892, 4, [AGroup 5 1 [sym_ppDirective]; AGroup 3 2 syms_5; AGroup 10856 5 syms_150;
     AGroup 10854 35 syms_245]);
   (307944, 4, [AGroup 5 1 [sym_ppDirective]; AGroup 3 2 syms_5; AGroup 10864 5 syms_150;
     AGroup 10862 35 syms_192]);
   (307996, 4, [AGroup 5 1 [sym_ppDirective]; AGroup 3 2 syms_5; AGroup 10868 5 syms_150;
     AGroup 10866 35 syms_192]);
   (308048, 4, [AGroup 5 1 [sym_ppDirective]; AGroup 3 2 syms_5; AGroup 18782 5 syms_150;
     AGroup 18780 35 syms_250]);
   (308100, 4, [AGroup 5 1 [sym_ppDirective]; AGroup 3 2 syms_5; AGroup 9812 5 syms_150;
     AGroup 9810 35 syms_192]);
   (308152, 4, [AGroup 5 1 [sym_ppDirective]; AGroup 3 2 syms_5; AGroup 10860 5 syms_150;
     AGroup 10858 35 syms_245]);
   (308204, 4, [AGroup 5 1 [sym_ppDirective]; AGroup 3 2 syms_5; AGroup 10888 5 syms_150;
     AGroup 10886 35 syms_245]);
   (308256, 4, [AGroup 5 1 [sym_ppDirective]; AGroup 3 2 syms_5; AGroup 10912 5 syms_150;
     AGroup 10910 35 syms_245]);
   (308308, 4, [AGroup 5 1 [sym_ppDirective]; AGroup 3 2 syms_5; AGroup 18774 5 syms_150;
     AGroup 18772 35 syms_192]);
   (308360, 27, [AGroup 5 1 [sym_ppDirective]; AGroup 9 1 [anon_sym_LBRACK];
     AGroup 11 1 [aux_sym_ppUsesBlock_token1]; AGroup 13 1 [sym_kGeneric];
     AGroup 15 1 [sym_kOperator]; AGroup 18756 1 [sym_kClass]; AGroup 18760 1 [sym_kExports];
     AGroup 18762 1 [sym_kLabel]; AGroup 18766 1 [sym_kType]; AGroup 18768 1 [sym_kUses];
     AGroup 19294 1 [sym_kAsm]; AGroup 19296 1 [sym_kBegin]; SGroup 9 1 [sym__ppIf];
     SGroup 6432 1 [sym_declProc]; SGroup 10355 1 [sym__declProc]; SGroup 10369 1 [sym_blockTr];
     SGroup 10437 1 [sym__defProcImpl]; SGroup 10439 1 [sym__defProcBody];
     SGroup 10443 1 [sym__declOperator]; SGroup 11110 1 [sym_rttiAttributes];
     SGroup 11216 1 [aux_sym_rttiAttributes_repeat2]; SGroup 14152 1 [sym_asmTr];
     AGroup 3 2 syms_5; AGroup 18758 2 syms_65; AGroup 18764 2 syms_66; AGroup 23 4 syms_3;
     SGroup 6606 11 syms_210]);
   (308458, 4, [AGroup 5 1 [sym_ppDirective]; AGroup 3 2 syms_5; AGroup 10864 5 syms_150;
     AGroup 10862 35 syms_245]);
   (308510, 4, [AGroup 5 1 [sym_ppDirective]; AGroup 3 2 syms_5; AGroup 10868 5 syms_150;
     AGroup 10866 35 syms_245]);
   (308562, 5, [AGroup 5 1 [sym_ppDirective]; AGroup 19341 1 [sym_kElse]; AGroup 3 2 syms_5;
     AGroup 10722 5 syms_150; AGroup 10720 34 syms_246]);
   (308616, 4, [AGroup 5 1 [sym_ppDirective]; AGroup 3 2 syms_5; AGroup 10872 5 syms_150;
     AGroup 10870 35 syms_245]);
   (308668, 4, [AGroup 5 1 [sym_ppDirective]; AGroup 3 2 syms_5; AGroup 10876 5 syms_150;
     AGroup 10874 35 syms_245]);
   (308720, 4, [AGroup 5 1 [sym_ppDirective]; AGroup 3 2 syms_5; AGroup 10908 5 syms_150;
     AGroup 10906 35 syms_245]);
   (308772, 4, [AGroup 5 1 [sym_ppDirective]; AGroup 3 2 syms_5; AGroup 10722 5 syms_150;
     AGroup 10720 35 syms_192]);
   (308824, 4, [AGroup 5 1 [sym_ppDirective]; AGroup 3 2 syms_5; AGroup 10872 5 syms_150;
     AGroup 10870 35 syms_192]);
   (308876, 23, [AGroup 5 1 [sym_ppDirective]; AGroup 13347 1 [anon_sym_LBRACK];
     AGroup 13365 1 [sym_identifier]; AGroup 13367 1 [sym_kGeneric];
     AGroup 13369 1 [sym_kOperator]; AGroup 13379 1 [sym_kClass]; AGroup 13391 1 [sym_kProperty];
     AGroup 13395 1 [sym_kType]; AGroup 19343 1 [aux_sym_ppUsesBlock_token1];
     SGroup 32 1 [sym__ppIf]; SGroup 9779 1 [sym_ppBlock]; SGroup 9835 1 [sym__declOperator];
     SGroup 10247 1 [sym__declProc]; SGroup 10617 1 [sym_rttiAttributes];
     SGroup 10730 1 [aux_sym_rttiAttributes_repeat2];
     SGroup 13987 1 [aux_sym_genericArg_repeat1]; AGroup 3 2 syms_5; AGroup 13381 2 syms_65;
     AGroup 13393 2 syms_66; SGroup 6350 2 syms_68; AGroup 13383 4 syms_3; SGroup 7083 6 syms_71;
     AGroup 19346 9 syms_244]);
   (308966, 4, [AGroup 5 1 [sym_ppDirective]; AGroup 3 2 syms_5; AGroup 10884 5 syms_150;
     AGroup 10882 35 syms_245]);
   (309018, 4, [AGroup 5 1 [sym_ppDirective]; AGroup 3 2 syms_5; AGroup 10708 5 syms_150;
     AGroup 10706 35 syms_245]);
   (309070, 23, [AGroup 5 1 [sym_ppDirective]; AGroup 13347 1 [anon_sym_LBRACK];
     AGroup 13365 1 [sym_identifier]; AGroup 13367 1 [sym_kGeneric];
     AGroup 13369 1 [sym_kOperator]; AGroup 13379 1 [sym_kClass]; AGroup 13391 1 [sym_kProperty];
     AGroup 13395 1 [sym_kType]; AGroup 19336 1 [aux_sym_ppUsesBlock_token1];
     SGroup 32 1 [sym__ppIf]; SGroup 9779 1 [sym_ppBlock]; SGroup 9835 1 [sym__declOperator];
     SGroup 10247 1 [sym__declProc]; SGroup 10617 1 [sym_rttiAttributes];
     SGroup 10730 1 [aux_sym_rttiAttributes_repeat2];
     SGroup 13987 1 [aux_sym_genericArg_repeat1]; AGroup 3 2 syms_5; AGroup 13381 2 syms_65;
     AGroup 13393 2 syms_66; SGroup 7758 2 syms_68; AGroup 13383 4 syms_3; SGroup 7099 6 syms_71;
     AGroup 19339 9 syms_244]);
   (309160, 4, [AGroup 5 1 [sym_ppDirective]; AGroup 3 2 syms_5; AGroup 10840 5 syms_150;
     AGroup 10838 35 syms_245]);
   (309212, 23, [AGroup 5 1 [sym_ppDirective]; AGroup 13347 1 [anon_sym_LBRACK];
     AGroup 13365 1 [sym_identifier]; AGroup 13367 1 [sym_kGeneric];
     AGroup 13369 1 [sym_kOperator]; AGroup 13379 1 [sym_kClass]; AGroup 13391 1 [sym_kProperty];
     AGroup 13395 1 [sym_kType]; AGroup 19289 1 [aux_sym_ppUsesBlock_token1];
     SGroup 32 1 [sym__ppIf]; SGroup 9779 1 [sym_ppBlock]; SGroup 9835 1 [sym__declOperator];
     SGroup 10247 1 [sym__declProc]; SGroup 10617 1 [sym_rttiAttributes];
     SGroup 10730 1 [aux_sym_rttiAttributes_repeat2];
     SGroup 13987 1 [aux_sym_genericArg_repeat1]; AGroup 3 2 syms_5; AGroup 13381 2 syms_65;
     AGroup 13393 2 syms_66; SGroup 6400 2 syms_68; AGroup 13383 4 syms_3; SGroup 7071 6 syms_71;
     AGroup 19292 9 syms_244])
  ].

(** States 6459 to 6558. *)
Definition small_runs_6459 : list small_run :=
  [
   (309302, 4, [AGroup 5 1 [sym_ppDirective]; AGroup 3 2 syms_5; AGroup 10812 5 syms_150;
     AGroup 10810 35 syms_192]);
   (309354, 26, [AGroup 5 1 [sym_ppDirective]; AGroup 9 1 [anon_sym_LBRACK];
     AGroup 11 1 [aux_sym_ppUsesBlock_token1]; AGroup 13 1 [sym_kGeneric];
     AGroup 15 1 [sym_kOperator]; AGroup 18756 1 [sym_kClass]; AGroup 18760 1 [sym_kExports];
     AGroup 18762 1 [sym_kLabel]; AGroup 18766 1 [sym_kType]; AGroup 18768 1 [sym_kUses];
     AGroup 19275 1 [sym_kAsm]; AGroup 19277 1 [sym_kBegin]; AGroup 19348 1 [anon_sym_COLON];
     SGroup 16 1 [sym__ppIf]; SGroup 5693 1 [sym_blockTr]; SGroup 6432 1 [sym_declProc];
     SGroup 9026 1 [sym_asmTr]; SGroup 10355 1 [sym__declProc];
     SGroup 10443 1 [sym__declOperator]; SGroup 11110 1 [sym_rttiAttributes];
     SGroup 11216 1 [aux_sym_rttiAttributes_repeat2]; AGroup 3 2 syms_5; AGroup 18758 2 syms_65;
     AGroup 18764 2 syms_66; AGroup 23 4 syms_3; SGroup 6980 11 syms_210]);
   (309449, 4, [AGroup 5 1 [sym_ppDirective]; AGroup 3 2 syms_5; AGroup 10734 5 syms_150;
     AGroup 10732 34 syms_246]);
   (309500, 26, [AGroup 5 1 [sym_ppDirective]; AGroup 9 1 [anon_sym_LBRACK];
     AGroup 11 1 [aux_sym_ppUsesBlock_token1]; AGroup 13 1 [sym_kGeneric];
     AGroup 15 1 [sym_kOperator]; AGroup 18756 1 [sym_kClass]; AGroup 18760 1 [sym_kExports];
     AGroup 18762 1 [sym_kLabel]; AGroup 18766 1 [sym_kType]; AGroup 18768 1 [sym_kUses];
     AGroup 18905 1 [sym_kAsm]; AGroup 18907 1 [sym_kBegin]; AGroup 19350 1 [anon_sym_COLON];
     SGroup 16 1 [sym__ppIf]; SGroup 5539 1 [sym_blockTr]; SGroup 6432 1 [sym_declProc];
     SGroup 8995 1 [sym_asmTr]; SGroup 10355 1 [sym__declProc];
     SGroup 10443 1 [sym__declOperator]; SGroup 11110 1 [sym_rttiAttributes];
     SGroup 11216 1 [aux_sym_rttiAttributes_repeat2]; AGroup 3 2 syms_5; AGroup 18758 2 syms_65;
     AGroup 18764 2 syms_66; AGroup 23 4 syms_3; SGroup 6809 11 syms_210]);
   (309595, 4, [AGroup 5 1 [sym_ppDirective]; AGroup 3 2 syms_5; AGroup 10722 5 syms_150;
     AGroup 10720 34 syms_246]);
   (309646, 26, [AGroup 5 1 [sym_ppDirective]; AGroup 9 1 [anon_sym_LBRACK];
     AGroup 11 1 [aux_sym_ppUsesBlock_token1]; AGroup 13 1 [sym_kGeneric];
     AGroup 15 1 [sym_kOperator]; AGroup 18756 1 [sym_kClass]; AGroup 18760 1 [sym_kExports];
     AGroup 18762 1 [sym_kLabel]; AGroup 18766 1 [sym_kType]; AGroup 18768 1 [sym_kUses];
     AGroup 18925 1 [sym_kAsm]; AGroup 18927 1 [sym_kBegin]; AGroup 19352 1 [anon_sym_COLON];
     SGroup 16 1 [sym__ppIf]; SGroup 5759 1 [sym_blockTr]; SGroup 6432 1 [sym_declProc];
     SGroup 9113 1 [sym_asmTr]; SGroup 10355 1 [sym__declProc];
     SGroup 10443 1 [sym__declOperator]; SGroup 11110 1 [sym_rttiAttributes];
     SGroup 11216 1 [aux_sym_rttiAttributes_repeat2]; AGroup 3 2 syms_5; AGroup 18758 2 syms_65;
     AGroup 18764 2 syms_66; AGroup 23 4 syms_3; SGroup 6661 11 syms_210]);
   (309741, 4, [AGroup 5 1 [sym_ppDirective]; AGroup 3 2 syms_5; AGroup 10820 5 syms_150;
     AGroup 10818 34 syms_251]);
   (309792, 26, [AGroup 5 1 [sym_ppDirective]; AGroup 9 1 [anon_sym_LBRACK];
     AGroup 11 1 [aux_sym_ppUsesBlock_token1]; AGroup 13 1 [sym_kGeneric];
     AGroup 15 1 [sym_kOperator]; AGroup 18756 1 [sym_kClass]; AGroup 18760 1 [sym_kExports];
     AGroup 18762 1 [sym_kLabel]; AGroup 18766 1 [sym_kType]; AGroup 18768 1 [sym_kUses];
     AGroup 19283 1 [sym_kAsm]; AGroup 19285 1 [sym_kBegin]; AGroup 19354 1 [anon_sym_COLON];
     SGroup 16 1 [sym__ppIf]; SGroup 4582 1 [sym_blockTr]; SGroup 6432 1 [sym_declProc];
     SGroup 8385 1 [sym_asmTr]; SGroup 10355 1 [sym__declProc];
     SGroup 10443 1 [sym__declOperator]; SGroup 11110 1 [sym_rttiAttributes];
     SGroup 11216 1 [aux_sym_rttiAttributes_repeat2]; AGroup 3 2 syms_5; AGroup 18758 2 syms_65;
     AGroup 18764 2 syms_66; AGroup 23 4 syms_3; SGroup 6621 11 syms_210]);
   (309887, 4, [AGroup 5 1 [sym_ppDirective]; AGroup 3 2 syms_5; AGroup 10888 5 syms_150;
     AGroup 10886 34 syms_251]);
   (309938, 4, [AGroup 5 1 [sym_ppDirective]; AGroup 3 2 syms_5; AGroup 10742 5 syms_150;
     AGroup 10740 34 syms_246]);
   (309989, 26, [AGroup 5 1 [sym_ppDirective]; AGroup 9 1 [anon_sym_LBRACK];
     AGroup 11 1 [aux_sym_ppUsesBlock_token1]; AGroup 13 1 [sym_kGeneric];
     AGroup 15 1 [sym_kOperator]; AGroup 18756 1 [sym_kClass]; AGroup 18760 1 [sym_kExports];
     AGroup 18762 1 [sym_kLabel]; AGroup 18766 1 [sym_kType]; AGroup 18768 1 [sym_kUses];
     AGroup 19294 1 [sym_kAsm]; AGroup 19296 1 [sym_kBegin]; SGroup 4 1 [sym__ppIf];
     SGroup 6432 1 [sym_declProc]; SGroup 10355 1 [sym__declProc]; SGroup 10364 1 [sym_blockTr];
     SGroup 10443 1 [sym__declOperator]; SGroup 11110 1 [sym_rttiAttributes];
     SGroup 11216 1 [aux_sym_rttiAttributes_repeat2]; SGroup 13437 1 [sym__defProcBody];
     SGroup 15378 1 [sym_asmTr]; AGroup 3 2 syms_5; AGroup 18758 2 syms_65;
     AGroup 18764 2 syms_66; AGroup 23 4 syms_3; SGroup 7035 11 syms_210]);
   (310084, 4, [AGroup 5 1 [sym_ppDirective]; AGroup 3 2 syms_5; AGroup 10752 5 syms_150;
     AGroup 10750 34 syms_246]);
   (310135, 4, [AGroup 5 1 [sym_ppDirective]; AGroup 3 2 syms_5; AGroup 10762 5 syms_150;
     AGroup 10760 34 syms_246]);
   (310186, 4, [AGroup 5 1 [sym_ppDirective]; AGroup 3 2 syms_5; AGroup 10892 5 syms_150;
     AGroup 10890 34 syms_251]);
   (310237, 4, [AGroup 5 1 [sym_ppDirective]; AGroup 3 2 syms_5; AGroup 10896 5 syms_150;
     AGroup 10894 34 syms_251]);
   (310288, 4, [AGroup 5 1 [sym_ppDirective]; AGroup 3 2 syms_5; AGroup 10900 5 syms_150;
     AGroup 10898 34 syms_251]);
   (310339, 5, [AGroup 5 1 [sym_ppDirective]; AGroup 19360 1 [sym_kEnd]; AGroup 3 2 syms_5;
     AGroup 19358 5 syms_150; AGroup 19356 33 syms_252]);
   (310392, 4, [AGroup 5 1 [sym_ppDirective]; AGroup 3 2 syms_5; AGroup 10844 5 syms_150;
     AGroup 10842 34 syms_246]);
   (310443, 4, [AGroup 5 1 [sym_ppDirective]; AGroup 3 2 syms_5; AGroup 10904 5 syms_150;
     AGroup 10902 34 syms_251]);
   (310494, 26, [AGroup 5 1 [sym_ppDirective]; AGroup 9 1 [anon_sym_LBRACK];
     AGroup 11 1 [aux_sym_ppUsesBlock_token1]; AGroup 13 1 [sym_kGeneric];
     AGroup 15 1 [sym_kOperator]; AGroup 18756 1 [sym_kClass]; AGroup 18760 1 [sym_kExports];
     AGroup 18762 1 [sym_kLabel]; AGroup 18766 1 [sym_kType]; AGroup 18768 1 [sym_kUses];
     AGroup 18919 1 [sym_kAsm]; AGroup 18921 1 [sym_kBegin]; AGroup 19362 1 [anon_sym_COLON];
     SGroup 16 1 [sym__ppIf]; SGroup 2955 1 [sym_blockTr]; SGroup 6432 1 [sym_declProc];
     SGroup 7059 1 [sym_asmTr]; SGroup 10355 1 [sym__declProc];
     SGroup 10443 1 [sym__declOperator]; SGroup 11110 1 [sym_rttiAttributes];
     SGroup 11216 1 [aux_sym_rttiAttributes_repeat2]; AGroup 3 2 syms_5; AGroup 18758 2 syms_65;
     AGroup 18764 2 syms_66; AGroup 23 4 syms_3; SGroup 6971 11 syms_210]);
   (310589, 7, [AGroup 5 1 [sym_ppDirective]; AGroup 15562 1 [anon_sym_POUND]; AGroup 3 2 syms_5;
     AGroup 19364 2 syms_6; SGroup 6481 3 syms_13; AGroup 15235 4 syms_25;
     AGroup 15233 29 syms_93]);
   (310646, 4, [AGroup 5 1 [sym_ppDirective]; AGroup 3 2 syms_5; AGroup 18782 5 syms_150;
     AGroup 18780 34 syms_253]);
   (310697, 7, [AGroup 5 1 [sym_ppDirective]; AGroup 19369 1 [anon_sym_POUND]; AGroup 3 2 syms_5;
     AGroup 19366 2 syms_6; SGroup 6481 3 syms_13; AGroup 15241 4 syms_25;
     AGroup 15239 29 syms_93]);
   (310754, 26, [AGroup 5 1 [sym_ppDirective]; AGroup 9 1 [anon_sym_LBRACK];
     AGroup 11 1 [aux_sym_ppUsesBlock_token1]; AGroup 13 1 [sym_kGeneric];
     AGroup 15 1 [sym_kOperator]; AGroup 18756 1 [sym_kClass]; AGroup 18760 1 [sym_kExports];
     AGroup 18762 1 [sym_kLabel]; AGroup 18766 1 [sym_kType]; AGroup 18768 1 [sym_kUses];
     AGroup 19294 1 [sym_kAsm]; AGroup 19296 1 [sym_kBegin]; SGroup 5 1 [sym__ppIf];
     SGroup 6432 1 [sym_declProc]; SGroup 10296 1 [sym__defProcBody];
     SGroup 10355 1 [sym__declProc]; SGroup 10400 1 [sym_blockTr];
     SGroup 10443 1 [sym__declOperator]; SGroup 11110 1 [sym_rttiAttributes];
     SGroup 11216 1 [aux_sym_rttiAttributes_repeat2]; SGroup 14790 1 [sym_asmTr];
     AGroup 3 2 syms_5; AGroup 18758 2 syms_65; AGroup 18764 2 syms_66; AGroup 23 4 syms_3;
     SGroup 7035 11 syms_210]);
   (310849, 26, [AGroup 5 1 [sym_ppDirective]; AGroup 9 1 [anon_sym_LBRACK];
     AGroup 11 1 [aux_sym_ppUsesBlock_token1]; AGroup 13 1 [sym_kGeneric];
     AGroup 15 1 [sym_kOperator]; AGroup 18756 1 [sym_kClass]; AGroup 18760 1 [sym_kExports];
     AGroup 18762 1 [sym_kLabel]; AGroup 18766 1 [sym_kType]; AGroup 18768 1 [sym_kUses];
     AGroup 18931 1 [sym_kAsm]; AGroup 18933 1 [sym_kBegin]; AGroup 19372 1 [anon_sym_COLON];
     SGroup 16 1 [sym__ppIf]; SGroup 5555 1 [sym_blockTr]; SGroup 6432 1 [sym_declProc];
     SGroup 8615 1 [sym_asmTr]; SGroup 10355 1 [sym__declProc];
     SGroup 10443 1 [sym__declOperator]; SGroup 11110 1 [sym_rttiAttributes];
     SGroup 11216 1 [aux_sym_rttiAttributes_repeat2]; AGroup 3 2 syms_5; AGroup 18758 2 syms_65;
     AGroup 18764 2 syms_66; AGroup 23 4 syms_3; SGroup 6707 11 syms_210]);
   (310944, 4, [AGroup 5 1 [sym_ppDirective]; AGroup 3 2 syms_5; AGroup 10908 5 syms_150;
     AGroup 10906 34 syms_251]);
   (310995, 26, [AGroup 5 1 [sym_ppDirective]; AGroup 9 1 [anon_sym_LBRACK];
     AGroup 11 1 [aux_sym_ppUsesBlock_token1]; AGroup 13 1 [sym_kGeneric];
     AGroup 15 1 [sym_kOperator]; AGroup 18756 1 [sym_kClass]; AGroup 18760 1 [sym_kExports];
     AGroup 18762 1 [sym_kLabel]; AGroup 18766 1 [sym_kType]; AGroup 18768 1 [sym_kUses];
     AGroup 18951 1 [sym_kAsm]; AGroup 18953 1 [sym_kBegin]; AGroup 19374 1 [anon_sym_COLON];
     SGroup 16 1 [sym__ppIf]; SGroup 5694 1 [sym_blockTr]; SGroup 6432 1 [sym_declProc];
     SGroup 9359 1 [sym_asmTr]; SGroup 10355 1 [sym__declProc];
     SGroup 10443 1 [sym__declOperator]; SGroup 11110 1 [sym_rttiAttributes];
     SGroup 11216 1 [aux_sym_rttiAttributes_repeat2]; AGroup 3 2 syms_5; AGroup 18758 2 syms_65;
     AGroup 18764 2 syms_66; AGroup 23 4 syms_3; SGroup 6698 11 syms_210]);
   (311090, 26, [AGroup 5 1 [sym_ppDirective]; AGroup 9 1 [anon_sym_LBRACK];
     AGroup 11 1 [aux_sym_ppUsesBlock_token1]; AGroup 13 1 [sym_kGeneric];
     AGroup 15 1 [sym_kOperator]; AGroup 18756 1 [sym_kClass]; AGroup 18760 1 [sym_kExports];
     AGroup 18762 1 [sym_kLabel]; AGroup 18766 1 [sym_kType]; AGroup 18768 1 [sym_kUses];
     AGroup 19035 1 [sym_kAsm]; AGroup 19037 1 [sym_kBegin]; AGroup 19376 1 [anon_sym_COLON];
     SGroup 16 1 [sym__ppIf]; SGroup 3561 1 [sym_blockTr]; SGroup 6432 1 [sym_declProc];
     SGroup 7691 1 [sym_asmTr]; SGroup 10355 1 [sym__declProc];
     SGroup 10443 1 [sym__declOperator]; SGroup 11110 1 [sym_rttiAttributes];
     SGroup 11216 1 [aux_sym_rttiAttributes_repeat2]; AGroup 3 2 syms_5; AGroup 18758 2 syms_65;
     AGroup 18764 2 syms_66; AGroup 23 4 syms_3; SGroup 6633 11 syms_210]);
   (311185, 4, [AGroup 5 1 [sym_ppDirective]; AGroup 3 2 syms_5; AGroup 10912 5 syms_150;
     AGroup 10910 34 syms_251]);
   (311236, 26, [AGroup 5 1 [sym_ppDirective]; AGroup 9 1 [anon_sym_LBRACK];
     AGroup 11 1 [aux_sym_ppUsesBlock_token1]; AGroup 13 1 [sym_kGeneric];
     AGroup 15 1 [sym_kOperator]; AGroup 18756 1 [sym_kClass]; AGroup 18760 1 [sym_kExports];
     AGroup 18762 1 [sym_kLabel]; AGroup 18766 1 [sym_kType]; AGroup 18768 1 [sym_kUses];
     AGroup 18978 1 [sym_kAsm]; AGroup 18980 1 [sym_kBegin]; AGroup 19378 1 [anon_sym_COLON];
     SGroup 16 1 [sym__ppIf]; SGroup 5581 1 [sym_blockTr]; SGroup 6432 1 [sym_declProc];
     SGroup 8729 1 [sym_asmTr]; SGroup 10355 1 [sym__declProc];
     SGroup 10443 1 [sym__declOperator]; SGroup 11110 1 [sym_rttiAttributes];
     SGroup 11216 1 [aux_sym_rttiAttributes_repeat2]; AGroup 3 2 syms_5; AGroup 18758 2 syms_65;
     AGroup 18764 2 syms_66; AGroup 23 4 syms_3; SGroup 6681 11 syms_210]);
   (311331, 4, [AGroup 5 1 [sym_ppDirective]; AGroup 3 2 syms_5; AGroup 10776 5 syms_150;
     AGroup 10774 34 syms_246]);
   (311382, 4, [AGroup 5 1 [sym_ppDirective]; AGroup 3 2 syms_5; AGroup 10840 5 syms_150;
     AGroup 10838 34 syms_251]);
   (311433, 4, [AGroup 5 1 [sym_ppDirective]; AGroup 3 2 syms_5; AGroup 10916 5 syms_150;
     AGroup 10914 34 syms_251]);
   (311484, 4, [AGroup 5 1 [sym_ppDirective]; AGroup 3 2 syms_5; AGroup 10768 5 syms_150;
     AGroup 10766 34 syms_251]);
   (311535, 26, [AGroup 5 1 [sym_ppDirective]; AGroup 9 1 [anon_sym_LBRACK];
     AGroup 11 1 [aux_sym_ppUsesBlock_token1]; AGroup 13 1 [sym_kGeneric];
     AGroup 15 1 [sym_kOperator]; AGroup 18756 1 [sym_kClass]; AGroup 18760 1 [sym_kExports];
     AGroup 18762 1 [sym_kLabel]; AGroup 18766 1 [sym_kType]; AGroup 18768 1 [sym_kUses];
     AGroup 18966 1 [sym_kAsm]; AGroup 18968 1 [sym_kBegin]; AGroup 19380 1 [anon_sym_COLON];
     SGroup 16 1 [sym__ppIf]; SGroup 3609 1 [sym_blockTr]; SGroup 6432 1 [sym_declProc];
     SGroup 7635 1 [sym_asmTr]; SGroup 10355 1 [sym__declProc];
     SGroup 10443 1 [sym__declOperator]; SGroup 11110 1 [sym_rttiAttributes];
     SGroup 11216 1 [aux_sym_rttiAttributes_repeat2]; AGroup 3 2 syms_5; AGroup 18758 2 syms_65;
     AGroup 18764 2 syms_66; AGroup 23 4 syms_3; SGroup 6864 11 syms_210]);
   (311630, 4, [AGroup 5 1 [sym_ppDirective]; AGroup 3 2 syms_5; AGroup 10780 5 syms_150;
     AGroup 10778 34 syms_246]);
   (311681, 4, [AGroup 5 1 [sym_ppDirective]; AGroup 3 2 syms_5; AGroup 10860 5 syms_150;
     AGroup 10858 34 syms_246]);
   (311732, 22, [AGroup 5 1 [sym_ppDirective]; AGroup 19382 1 [anon_sym_LBRACK];
     AGroup 19385 1 [aux_sym_ppUsesBlock_token1]; AGroup 19388 1 [sym_kGeneric];
     AGroup 19391 1 [sym_kOperator]; AGroup 19394 1 [sym_kClass]; AGroup 19405 1 [sym_kExports];
     AGroup 19408 1 [sym_kLabel]; AGroup 19411 1 [sym_kProperty]; AGroup 19417 1 [sym_kType];
     AGroup 19420 1 [sym_kUses]; SGroup 30 1 [sym__ppIf]; SGroup 9577 1 [sym__declProc];
     SGroup 10315 1 [sym__declOperator]; SGroup 10807 1 [sym_rttiAttributes];
     SGroup 11027 1 [aux_sym_rttiAttributes_repeat2]; AGroup 3 2 syms_5; AGroup 19397 2 syms_65;
     AGroup 19414 2 syms_66; AGroup 19400 4 syms_3; AGroup 19403 5 syms_60;
     SGroup 6496 11 syms_254]);
   (311819, 4, [AGroup 5 1 [sym_ppDirective]; AGroup 3 2 syms_5; AGroup 10848 5 syms_150;
     AGroup 10846 34 syms_251]);
   (311870, 4, [AGroup 5 1 [sym_ppDirective]; AGroup 3 2 syms_5; AGroup 10828 5 syms_150;
     AGroup 10826 34 syms_251]);
   (311921, 4, [AGroup 5 1 [sym_ppDirective]; AGroup 3 2 syms_5; AGroup 10880 5 syms_150;
     AGroup 10878 34 syms_251]);
   (311972, 4, [AGroup 5 1 [sym_ppDirective]; AGroup 3 2 syms_5; AGroup 10786 5 syms_150;
     AGroup 10784 34 syms_246]);
   (312023, 4, [AGroup 5 1 [sym_ppDirective]; AGroup 3 2 syms_5; AGroup 10712 5 syms_150;
     AGroup 10710 34 syms_251]);
   (312074, 4, [AGroup 5 1 [sym_ppDirective]; AGroup 3 2 syms_5; AGroup 10734 5 syms_150;
     AGroup 10732 34 syms_251]);
   (312125, 4, [AGroup 5 1 [sym_ppDirective]; AGroup 3 2 syms_5; AGroup 10734 5 syms_150;
     AGroup 10732 34 syms_251]);
   (312176, 26, [AGroup 5 1 [sym_ppDirective]; AGroup 9 1 [anon_sym_LBRACK];
     AGroup 11 1 [aux_sym_ppUsesBlock_token1]; AGroup 13 1 [sym_kGeneric];
     AGroup 15 1 [sym_kOperator]; AGroup 18756 1 [sym_kClass]; AGroup 18760 1 [sym_kExports];
     AGroup 18762 1 [sym_kLabel]; AGroup 18766 1 [sym_kType]; AGroup 18768 1 [sym_kUses];
     AGroup 19294 1 [sym_kAsm]; AGroup 19296 1 [sym_kBegin]; SGroup 6 1 [sym__ppIf];
     SGroup 1329 1 [sym__defProcBody]; SGroup 6432 1 [sym_declProc];
     SGroup 10355 1 [sym__declProc]; SGroup 10392 1 [sym_blockTr];
     SGroup 10443 1 [sym__declOperator]; SGroup 11110 1 [sym_rttiAttributes];
     SGroup 11216 1 [aux_sym_rttiAttributes_repeat2]; SGroup 15019 1 [sym_asmTr];
     AGroup 3 2 syms_5; AGroup 18758 2 syms_65; AGroup 18764 2 syms_66; AGroup 23 4 syms_3;
     SGroup 7035 11 syms_210]);
   (312271, 26, [AGroup 5 1 [sym_ppDirective]; AGroup 9 1 [anon_sym_LBRACK];
     AGroup 11 1 [aux_sym_ppUsesBlock_token1]; AGroup 13 1 [sym_kGeneric];
     AGroup 15 1 [sym_kOperator]; AGroup 18756 1 [sym_kClass]; AGroup 18760 1 [sym_kExports];
     AGroup 18762 1 [sym_kLabel]; AGroup 18766 1 [sym_kType]; AGroup 18768 1 [sym_kUses];
     AGroup 19009 1 [sym_kAsm]; AGroup 19011 1 [sym_kBegin]; AGroup 19423 1 [anon_sym_COLON];
     SGroup 16 1 [sym__ppIf]; SGroup 3151 1 [sym_blockTr]; SGroup 6432 1 [sym_declProc];
     SGroup 7116 1 [sym_asmTr]; SGroup 10355 1 [sym__declProc];
     SGroup 10443 1 [sym__declOperator]; SGroup 11110 1 [sym_rttiAttributes];
     SGroup 11216 1 [aux_sym_rttiAttributes_repeat2]; AGroup 3 2 syms_5; AGroup 18758 2 syms_65;
     AGroup 18764 2 syms_66; AGroup 23 4 syms_3; SGroup 6964 11 syms_210]);
   (312366, 4, [AGroup 5 1 [sym_ppDirective]; AGroup 3 2 syms_5; AGroup 10742 5 syms_150;
     AGroup 10740 34 syms_251]);
   (312417, 4, [AGroup 5 1 [sym_ppDirective]; AGroup 3 2 syms_5; AGroup 10794 5 syms_150;
     AGroup 10792 34 syms_246]);
   (312468, 4, [AGroup 5 1 [sym_ppDirective]; AGroup 3 2 syms_5; AGroup 10804 5 syms_150;
     AGroup 10802 34 syms_246]);
   (312519, 4, [AGroup 5 1 [sym_ppDirective]; AGroup 3 2 syms_5; AGroup 10876 5 syms_150;
     AGroup 10874 34 syms_246]);
   (312570, 26, [AGroup 5 1 [sym_ppDirective]; AGroup 9 1 [anon_sym_LBRACK];
     AGroup 11 1 [aux_sym_ppUsesBlock_token1]; AGroup 13 1 [sym_kGeneric];
     AGroup 15 1 [sym_kOperator]; AGroup 18756 1 [sym_kClass]; AGroup 18760 1 [sym_kExports];
     AGroup 18762 1 [sym_kLabel]; AGroup 18766 1 [sym_kType]; AGroup 18768 1 [sym_kUses];
     AGroup 18984 1 [sym_kAsm]; AGroup 18986 1 [sym_kBegin]; AGroup 19425 1 [anon_sym_COLON];
     SGroup 16 1 [sym__ppIf]; SGroup 4082 1 [sym_blockTr]; SGroup 6432 1 [sym_declProc];
     SGroup 8139 1 [sym_asmTr]; SGroup 10355 1 [sym__declProc];
     SGroup 10443 1 [sym__declOperator]; SGroup 11110 1 [sym_rttiAttributes];
     SGroup 11216 1 [aux_sym_rttiAttributes_repeat2]; AGroup 3 2 syms_5; AGroup 18758 2 syms_65;
     AGroup 18764 2 syms_66; AGroup 23 4 syms_3; SGroup 6721 11 syms_210]);
   (312665, 7, [AGroup 5 1 [sym_ppDirective]; AGroup 19430 1 [anon_sym_POUND]; AGroup 3 2 syms_5;
     AGroup 19427 2 syms_6; SGroup 6511 3 syms_13; AGroup 15241 7 syms_34;
     AGroup 15239 26 syms_82]);
   (312722, 4, [AGroup 5 1 [sym_ppDirective]; AGroup 3 2 syms_5; AGroup 10752 5 syms_150;
     AGroup 10750 34 syms_251]);
   (312773, 26, [AGroup 5 1 [sym_ppDirective]; AGroup 9 1 [anon_sym_LBRACK];
     AGroup 11 1 [aux_sym_ppUsesBlock_token1]; AGroup 13 1 [sym_kGeneric];
     AGroup 15 1 [sym_kOperator]; AGroup 18756 1 [sym_kClass]; AGroup 18760 1 [sym_kExports];
     AGroup 18762 1 [sym_kLabel]; AGroup 18766 1 [sym_kType]; AGroup 18768 1 [sym_kUses];
     AGroup 19015 1 [sym_kAsm]; AGroup 19017 1 [sym_kBegin]; AGroup 19433 1 [anon_sym_COLON];
     SGroup 16 1 [sym__ppIf]; SGroup 3482 1 [sym_blockTr]; SGroup 6432 1 [sym_declProc];
     SGroup 7607 1 [sym_asmTr]; SGroup 10355 1 [sym__declProc];
     SGroup 10443 1 [sym__declOperator]; SGroup 11110 1 [sym_rttiAttributes];
     SGroup 11216 1 [aux_sym_rttiAttributes_repeat2]; AGroup 3 2 syms_5; AGroup 18758 2 syms_65;
     AGroup 18764 2 syms_66; AGroup 23 4 syms_3; SGroup 6630 11 syms_210]);
   (312868, 4, [AGroup 5 1 [sym_ppDirective]; AGroup 3 2 syms_5; AGroup 10808 5 syms_150;
     AGroup 10806 34 syms_246]);
   (312919, 4, [AGroup 5 1 [sym_ppDirective]; AGroup 3 2 syms_5; AGroup 10812 5 syms_150;
     AGroup 10810 34 syms_246]);
   (312970, 4, [AGroup 5 1 [sym_ppDirective]; AGroup 3 2 syms_5; AGroup 10762 5 syms_150;
     AGroup 10760 34 syms_251]);
   (313021, 4, [AGroup 5 1 [sym_ppDirective]; AGroup 3 2 syms_5; AGroup 10904 5 syms_150;
     AGroup 10902 34 syms_246]);
   (313072, 26, [AGroup 5 1 [sym_ppDirective]; AGroup 9 1 [anon_sym_LBRACK];
     AGroup 11 1 [aux_sym_ppUsesBlock_token1]; AGroup 13 1 [sym_kGeneric];
     AGroup 15 1 [sym_kOperator]; AGroup 18756 1 [sym_kClass]; AGroup 18760 1 [sym_kExports];
     AGroup 18762 1 [sym_kLabel]; AGroup 18766 1 [sym_kType]; AGroup 18768 1 [sym_kUses];
     AGroup 19021 1 [sym_kAsm]; AGroup 19023 1 [sym_kBegin]; AGroup 19435 1 [anon_sym_COLON];
     SGroup 16 1 [sym__ppIf]; SGroup 5669 1 [sym_blockTr]; SGroup 6432 1 [sym_declProc];
     SGroup 8687 1 [sym_asmTr]; SGroup 10355 1 [sym__declProc];
     SGroup 10443 1 [sym__declOperator]; SGroup 11110 1 [sym_rttiAttributes];
     SGroup 11216 1 [aux_sym_rttiAttributes_repeat2]; AGroup 3 2 syms_5; AGroup 18758 2 syms_65;
     AGroup 18764 2 syms_66; AGroup 23 4 syms_3; SGroup 6629 11 syms_210]);
   (313167, 4, [AGroup 5 1 [sym_ppDirective]; AGroup 3 2 syms_5; AGroup 10776 5 syms_150;
     AGroup 10774 34 syms_251]);
   (313218, 4, [AGroup 5 1 [sym_ppDirective]; AGroup 3 2 syms_5; AGroup 10844 5 syms_150;
     AGroup 10842 34 syms_251]);
   (313269, 26, [AGroup 5 1 [sym_ppDirective]; AGroup 9 1 [anon_sym_LBRACK];
     AGroup 11 1 [aux_sym_ppUsesBlock_token1]; AGroup 13 1 [sym_kGeneric];
     AGroup 15 1 [sym_kOperator]; AGroup 18756 1 [sym_kClass]; AGroup 18760 1 [sym_kExports];
     AGroup 18762 1 [sym_kLabel]; AGroup 18766 1 [sym_kType]; AGroup 18768 1 [sym_kUses];
     AGroup 18911 1 [sym_kAsm]; AGroup 18913 1 [sym_kBegin]; AGroup 19437 1 [anon_sym_COLON];
     SGroup 16 1 [sym__ppIf]; SGroup 5780 1 [sym_blockTr]; SGroup 6432 1 [sym_declProc];
     SGroup 9218 1 [sym_asmTr]; SGroup 10355 1 [sym__declProc];
     SGroup 10443 1 [sym__declOperator]; SGroup 11110 1 [sym_rttiAttributes];
     SGroup 11216 1 [aux_sym_rttiAttributes_repeat2]; AGroup 3 2 syms_5; AGroup 18758 2 syms_65;
     AGroup 18764 2 syms_66; AGroup 23 4 syms_3; SGroup 6658 11 syms_210]);
   (313364, 4, [AGroup 5 1 [sym_ppDirective]; AGroup 3 2 syms_5; AGroup 18782 5 syms_150;
     AGroup 18780 34 syms_246]);
   (313415, 4, [AGroup 5 1 [sym_ppDirective]; AGroup 3 2 syms_5; AGroup 10780 5 syms_150;
     AGroup 10778 34 syms_251]);
   (313466, 4, [AGroup 5 1 [sym_ppDirective]; AGroup 3 2 syms_5; AGroup 10786 5 syms_150;
     AGroup 10784 34 syms_251]);
   (313517, 4, [AGroup 5 1 [sym_ppDirective]; AGroup 3 2 syms_5; AGroup 10794 5 syms_150;
     AGroup 10792 34 syms_251]);
   (313568, 4, [AGroup 5 1 [sym_ppDirective]; AGroup 3 2 syms_5; AGroup 10804 5 syms_150;
     AGroup 10802 34 syms_251]);
   (313619, 26, [AGroup 5 1 [sym_ppDirective]; AGroup 9 1 [anon_sym_LBRACK];
     AGroup 11 1 [aux_sym_ppUsesBlock_token1]; AGroup 13 1 [sym_kGeneric];
     AGroup 15 1 [sym_kOperator]; AGroup 18756 1 [sym_kClass]; AGroup 18760 1 [sym_kExports];
     AGroup 18762 1 [sym_kLabel]; AGroup 18766 1 [sym_kType]; AGroup 18768 1 [sym_kUses];
     AGroup 19294 1 [sym_kAsm]; AGroup 19296 1 [sym_kBegin]; SGroup 8 1 [sym__ppIf];
     SGroup 6432 1 [sym_declProc]; SGroup 10355 1 [sym__declProc]; SGroup 10372 1 [sym_blockTr];
     SGroup 10429 1 [sym__defProcBody]; SGroup 10443 1 [sym__declOperator];
     SGroup 11110 1 [sym_rttiAttributes]; SGroup 11216 1 [aux_sym_rttiAttributes_repeat2];
     SGroup 15022 1 [sym_asmTr]; AGroup 3 2 syms_5; AGroup 18758 2 syms_65;
     AGroup 18764 2 syms_66; AGroup 23 4 syms_3; SGroup 7035 11 syms_210]);
   (313714, 26, [AGroup 5 1 [sym_ppDirective]; AGroup 9 1 [anon_sym_LBRACK];
     AGroup 11 1 [aux_sym_ppUsesBlock_token1]; AGroup 13 1 [sym_kGeneric];
     AGroup 15 1 [sym_kOperator]; AGroup 18756 1 [sym_kClass]; AGroup 18760 1 [sym_kExports];
     AGroup 18762 1 [sym_kLabel]; AGroup 18766 1 [sym_kType]; AGroup 18768 1 [sym_kUses];
     AGroup 19029 1 [sym_kAsm]; AGroup 19031 1 [sym_kBegin]; AGroup 19439 1 [anon_sym_COLON];
     SGroup 16 1 [sym__ppIf]; SGroup 3202 1 [sym_blockTr]; SGroup 6432 1 [sym_declProc];
     SGroup 7267 1 [sym_asmTr]; SGroup 10355 1 [sym__declProc];
     SGroup 10443 1 [sym__declOperator]; SGroup 11110 1 [sym_rttiAttributes];
     SGroup 11216 1 [aux_sym_rttiAttributes_repeat2]; AGroup 3 2 syms_5; AGroup 18758 2 syms_65;
     AGroup 18764 2 syms_66; AGroup 23 4 syms_3; SGroup 6656 11 syms_210]);
   (313809, 4, [AGroup 5 1 [sym_ppDirective]; AGroup 3 2 syms_5; AGroup 10908 5 syms_150;
     AGroup 10906 34 syms_246]);
   (313860, 4, [AGroup 5 1 [sym_ppDirective]; AGroup 3 2 syms_5; AGroup 10808 5 syms_150;
     AGroup 10806 34 syms_251]);
   (313911, 4, [AGroup 5 1 [sym_ppDirective]; AGroup 3 2 syms_5; AGroup 10812 5 syms_150;
     AGroup 10810 34 syms_251]);
   (313962, 4, [AGroup 5 1 [sym_ppDirective]; AGroup 3 2 syms_5; AGroup 10722 5 syms_150;
     AGroup 10720 34 syms_251]);
   (314013, 26, [AGroup 5 1 [sym_ppDirective]; AGroup 9 1 [anon_sym_LBRACK];
     AGroup 11 1 [aux_sym_ppUsesBlock_token1]; AGroup 13 1 [sym_kGeneric];
     AGroup 15 1 [sym_kOperator]; AGroup 18756 1 [sym_kClass]; AGroup 18760 1 [sym_kExports];
     AGroup 18762 1 [sym_kLabel]; AGroup 18766 1 [sym_kType]; AGroup 18768 1 [sym_kUses];
     AGroup 18885 1 [sym_kAsm]; AGroup 18887 1 [sym_kBegin]; AGroup 19441 1 [anon_sym_COLON];
     SGroup 16 1 [sym__ppIf]; SGroup 5132 1 [sym_blockTr]; SGroup 6432 1 [sym_declProc];
     SGroup 8295 1 [sym_asmTr]; SGroup 10355 1 [sym__declProc];
     SGroup 10443 1 [sym__declOperator]; SGroup 11110 1 [sym_rttiAttributes];
     SGroup 11216 1 [aux_sym_rttiAttributes_repeat2]; AGroup 3 2 syms_5; AGroup 18758 2 syms_65;
     AGroup 18764 2 syms_66; AGroup 23 4 syms_3; SGroup 6718 11 syms_210]);
   (314108, 7, [AGroup 5 1 [sym_ppDirective]; AGroup 9640 1 [anon_sym_POUND]; AGroup 3 2 syms_5;
     AGroup 19443 2 syms_6; SGroup 6569 3 syms_13; AGroup 15235 7 syms_34;
     AGroup 15233 26 syms_81]);
   (314165, 26, [AGroup 5 1 [sym_ppDirective]; AGroup 9 1 [anon_sym_LBRACK];
     AGroup 11 1 [aux_sym_ppUsesBlock_token1]; AGroup 13 1 [sym_kGeneric];
     AGroup 15 1 [sym_kOperator]; AGroup 18756 1 [sym_kClass]; AGroup 18760 1 [sym_kExports];
     AGroup 18762 1 [sym_kLabel]; AGroup 18766 1 [sym_kType]; AGroup 18768 1 [sym_kUses];
     AGroup 18986 1 [sym_kBegin]; AGroup 19041 1 [sym_kAsm]; AGroup 19445 1 [anon_sym_COLON];
     SGroup 16 1 [sym__ppIf]; SGroup 5945 1 [sym_blockTr]; SGroup 5950 1 [sym_asmTr];
     SGroup 6432 1 [sym_declProc]; SGroup 10355 1 [sym__declProc];
     SGroup 10443 1 [sym__declOperator]; SGroup 11110 1 [sym_rttiAttributes];
     SGroup 11216 1 [aux_sym_rttiAttributes_repeat2]; AGroup 3 2 syms_5; AGroup 18758 2 syms_65;
     AGroup 18764 2 syms_66; AGroup 23 4 syms_3; SGroup 6679 11 syms_210]);
   (314260, 26, [AGroup 5 1 [sym_ppDirective]; AGroup 9 1 [anon_sym_LBRACK];
     AGroup 11 1 [aux_sym_ppUsesBlock_token1]; AGroup 13 1 [sym_kGeneric];
     AGroup 15 1 [sym_kOperator]; AGroup 18756 1 [sym_kClass]; AGroup 18760 1 [sym_kExports];
     AGroup 18762 1 [sym_kLabel]; AGroup 18766 1 [sym_kType]; AGroup 18768 1 [sym_kUses];
     AGroup 18937 1 [sym_kAsm]; AGroup 18939 1 [sym_kBegin]; AGroup 19447 1 [anon_sym_COLON];
     SGroup 16 1 [sym__ppIf]; SGroup 5707 1 [sym_blockTr]; SGroup 6432 1 [sym_declProc];
     SGroup 9257 1 [sym_asmTr]; SGroup 10355 1 [sym__declProc];
     SGroup 10443 1 [sym__declOperator]; SGroup 11110 1 [sym_rttiAttributes];
     SGroup 11216 1 [aux_sym_rttiAttributes_repeat2]; AGroup 3 2 syms_5; AGroup 18758 2 syms_65;
     AGroup 18764 2 syms_66; AGroup 23 4 syms_3; SGroup 6717 11 syms_210]);
   (314355, 4, [AGroup 5 1 [sym_ppDirective]; AGroup 3 2 syms_5; AGroup 10852 5 syms_150;
     AGroup 10850 34 syms_251]);
   (314406, 26, [AGroup 5 1 [sym_ppDirective]; AGroup 9 1 [anon_sym_LBRACK];
     AGroup 11 1 [aux_sym_ppUsesBlock_token1]; AGroup 13 1 [sym_kGeneric];
     AGroup 15 1 [sym_kOperator]; AGroup 18756 1 [sym_kClass]; AGroup 18760 1 [sym_kExports];
     AGroup 18762 1 [sym_kLabel]; AGroup 18766 1 [sym_kType]; AGroup 18768 1 [sym_kUses];
     AGroup 19053 1 [sym_kAsm]; AGroup 19055 1 [sym_kBegin]; AGroup 19449 1 [anon_sym_COLON];
     SGroup 16 1 [sym__ppIf]; SGroup 5360 1 [sym_blockTr]; SGroup 6432 1 [sym_declProc];
     SGroup 8174 1 [sym_asmTr]; SGroup 10355 1 [sym__declProc];
     SGroup 10443 1 [sym__declOperator]; SGroup 11110 1 [sym_rttiAttributes];
     SGroup 11216 1 [aux_sym_rttiAttributes_repeat2]; AGroup 3 2 syms_5; AGroup 18758 2 syms_65;
     AGroup 18764 2 syms_66; AGroup 23 4 syms_3; SGroup 6693 11 syms_210]);
   (314501, 4, [AGroup 5 1 [sym_ppDirective]; AGroup 3 2 syms_5; AGroup 10856 5 syms_150;
     AGroup 10854 34 syms_251]);
   (314552, 26, [AGroup 5 1 [sym_ppDirective]; AGroup 9 1 [anon_sym_LBRACK];
     AGroup 11 1 [aux_sym_ppUsesBlock_token1]; AGroup 13 1 [sym_kGeneric];
     AGroup 15 1 [sym_kOperator]; AGroup 18756 1 [sym_kClass]; AGroup 18760 1 [sym_kExports];
     AGroup 18762 1 [sym_kLabel]; AGroup 18766 1 [sym_kType]; AGroup 18768 1 [sym_kUses];
     AGroup 19102 1 [sym_kAsm]; AGroup 19104 1 [sym_kBegin]; AGroup 19451 1 [anon_sym_COLON];
     SGroup 16 1 [sym__ppIf]; SGroup 3393 1 [sym_blockTr]; SGroup 6432 1 [sym_declProc];
     SGroup 7497 1 [sym_asmTr]; SGroup 10355 1 [sym__declProc];
     SGroup 10443 1 [sym__declOperator]; SGroup 11110 1 [sym_rttiAttributes];
     SGroup 11216 1 [aux_sym_rttiAttributes_repeat2]; AGroup 3 2 syms_5; AGroup 18758 2 syms_65;
     AGroup 18764 2 syms_66; AGroup 23 4 syms_3; SGroup 6705 11 syms_210]);
   (314647, 7, [AGroup 5 1 [sym_ppDirective]; AGroup 679 1 [anon_sym_POUND]; AGroup 3 2 syms_5;
     AGroup 19453 2 syms_6; SGroup 6575 3 syms_13; AGroup 15235 7 syms_34;
     AGroup 15233 26 syms_92]);
   (314704, 26, [AGroup 5 1 [sym_ppDirective]; AGroup 9 1 [anon_sym_LBRACK];
     AGroup 11 1 [aux_sym_ppUsesBlock_token1]; AGroup 13 1 [sym_kGeneric];
     AGroup 15 1 [sym_kOperator]; AGroup 18756 1 [sym_kClass]; AGroup 18760 1 [sym_kExports];
     AGroup 18762 1 [sym_kLabel]; AGroup 18766 1 [sym_kType]; AGroup 18768 1 [sym_kUses];
     AGroup 19047 1 [sym_kAsm]; AGroup 19049 1 [sym_kBegin]; AGroup 19455 1 [anon_sym_COLON];
     SGroup 16 1 [sym__ppIf]; SGroup 3452 1 [sym_blockTr]; SGroup 6432 1 [sym_declProc];
     SGroup 7437 1 [sym_asmTr]; SGroup 10355 1 [sym__declProc];
     SGroup 10443 1 [sym__declOperator]; SGroup 11110 1 [sym_rttiAttributes];
     SGroup 11216 1 [aux_sym_rttiAttributes_repeat2]; AGroup 3 2 syms_5; AGroup 18758 2 syms_65;
     AGroup 18764 2 syms_66; AGroup 23 4 syms_3; SGroup 6784 11 syms_210]);
   (314799, 26, [AGroup 5 1 [sym_ppDirective]; AGroup 9 1 [anon_sym_LBRACK];
     AGroup 11 1 [aux_sym_ppUsesBlock_token1]; AGroup 13 1 [sym_kGeneric];
     AGroup 15 1 [sym_kOperator]; AGroup 18756 1 [sym_kClass]; AGroup 18760 1 [sym_kExports];
     AGroup 18762 1 [sym_kLabel]; AGroup 18766 1 [sym_kType]; AGroup 18768 1 [sym_kUses];
     AGroup 19108 1 [sym_kAsm]; AGroup 19110 1 [sym_kBegin]; AGroup 19457 1 [anon_sym_COLON];
     SGroup 16 1 [sym__ppIf]; SGroup 3362 1 [sym_blockTr]; SGroup 6432 1 [sym_declProc];
     SGroup 7233 1 [sym_asmTr]; SGroup 10355 1 [sym__declProc];
     SGroup 10443 1 [sym__declOperator]; SGroup 11110 1 [sym_rttiAttributes];
     SGroup 11216 1 [aux_sym_rttiAttributes_repeat2]; AGroup 3 2 syms_5; AGroup 18758 2 syms_65;
     AGroup 18764 2 syms_66; AGroup 23 4 syms_3; SGroup 6720 11 syms_210]);
   (314894, 4, [AGroup 5 1 [sym_ppDirective]; AGroup 3 2 syms_5; AGroup 10734 5 syms_150;
     AGroup 10732 34 syms_246]);
   (314945, 26, [AGroup 5 1 [sym_ppDirective]; AGroup 9 1 [anon_sym_LBRACK];
     AGroup 11 1 [aux_sym_ppUsesBlock_token1]; AGroup 13 1 [sym_kGeneric];
     AGroup 15 1 [sym_kOperator]; AGroup 18756 1 [sym_kClass]; AGroup 18760 1 [sym_kExports];
     AGroup 18762 1 [sym_kLabel]; AGroup 18766 1 [sym_kType]; AGroup 18768 1 [sym_kUses];
     AGroup 19117 1 [sym_kAsm]; AGroup 19119 1 [sym_kBegin]; AGroup 19459 1 [anon_sym_COLON];
     SGroup 16 1 [sym__ppIf]; SGroup 5703 1 [sym_blockTr]; SGroup 6432 1 [sym_declProc];
     SGroup 9077 1 [sym_asmTr]; SGroup 10355 1 [sym__declProc];
     SGroup 10443 1 [sym__declOperator]; SGroup 11110 1 [sym_rttiAttributes];
     SGroup 11216 1 [aux_sym_rttiAttributes_repeat2]; AGroup 3 2 syms_5; AGroup 18758 2 syms_65;
     AGroup 18764 2 syms_66; AGroup 23 4 syms_3; SGroup 6730 11 syms_210]);
   (315040, 26, [AGroup 5 1 [sym_ppDirective]; AGroup 9 1 [anon_sym_LBRACK];
     AGroup 11 1 [aux_sym_ppUsesBlock_token1]; AGroup 13 1 [sym_kGeneric];
     AGroup 15 1 [sym_kOperator]; AGroup 18756 1 [sym_kClass]; AGroup 18760 1 [sym_kExports];
     AGroup 18762 1 [sym_kLabel]; AGroup 18766 1 [sym_kType]; AGroup 18768 1 [sym_kUses];
     AGroup 19129 1 [sym_kAsm]; AGroup 19131 1 [sym_kBegin]; AGroup 19461 1 [anon_sym_COLON];
     SGroup 16 1 [sym__ppIf]; SGroup 3575 1 [sym_blockTr]; SGroup 6432 1 [sym_declProc];
     SGroup 7707 1 [sym_asmTr]; SGroup 10355 1 [sym__declProc];
     SGroup 10443 1 [sym__declOperator]; SGroup 11110 1 [sym_rttiAttributes];
     SGroup 11216 1 [aux_sym_rttiAttributes_repeat2]; AGroup 3 2 syms_5; AGroup 18758 2 syms_65;
     AGroup 18764 2 syms_66; AGroup 23 4 syms_3; SGroup 6742 11 syms_210]);
   (315135, 26, [AGroup 5 1 [sym_ppDirective]; AGroup 9 1 [anon_sym_LBRACK];
     AGroup 11 1 [aux_sym_ppUsesBlock_token1]; AGroup 13 1 [sym_kGeneric];
     AGroup 15 1 [sym_kOperator]; AGroup 18756 1 [sym_kClass]; AGroup 18760 1 [sym_kExports];
     AGroup 18762 1 [sym_kLabel]; AGroup 18766 1 [sym_kType]; AGroup 18768 1 [sym_kUses];
     AGroup 18899 1 [sym_kAsm]; AGroup 18901 1 [sym_kBegin]; AGroup 19463 1 [anon_sym_COLON];
     SGroup 16 1 [sym__ppIf]; SGroup 4546 1 [sym_blockTr]; SGroup 6432 1 [sym_declProc];
     SGroup 8328 1 [sym_asmTr]; SGroup 10355 1 [sym__declProc];
     SGroup 10443 1 [sym__declOperator]; SGroup 11110 1 [sym_rttiAttributes];
     SGroup 11216 1 [aux_sym_rttiAttributes_repeat2]; AGroup 3 2 syms_5; AGroup 18758 2 syms_65;
     AGroup 18764 2 syms_66; AGroup 23 4 syms_3; SGroup 6785 11 syms_210]);
   (315230, 26, [AGroup 5 1 [sym_ppDirective]; AGroup 9 1 [anon_sym_LBRACK];
     AGroup 11 1 [aux_sym_ppUsesBlock_token1]; AGroup 13 1 [sym_kGeneric];
     AGroup 15 1 [sym_kOperator]; AGroup 18756 1 [sym_kClass]; AGroup 18760 1 [sym_kExports];
     AGroup 18762 1 [sym_kLabel]; AGroup 18766 1 [sym_kType]; AGroup 18768 1 [sym_kUses];
     AGroup 19135 1 [sym_kAsm]; AGroup 19137 1 [sym_kBegin]; AGroup 19465 1 [anon_sym_COLON];
     SGroup 16 1 [sym__ppIf]; SGroup 5549 1 [sym_blockTr]; SGroup 6432 1 [sym_declProc];
     SGroup 8850 1 [sym_asmTr]; SGroup 10355 1 [sym__declProc];
     SGroup 10443 1 [sym__declOperator]; SGroup 11110 1 [sym_rttiAttributes];
     SGroup 11216 1 [aux_sym_rttiAttributes_repeat2]; AGroup 3 2 syms_5; AGroup 18758 2 syms_65;
     AGroup 18764 2 syms_66; AGroup 23 4 syms_3; SGroup 6755 11 syms_210]);
   (315325, 4, [AGroup 5 1 [sym_ppDirective]; AGroup 3 2 syms_5; AGroup 10892 5 syms_150;
     AGroup 10890 34 syms_246]);
   (315376, 4, [AGroup 5 1 [sym_ppDirective]; AGroup 3 2 syms_5; AGroup 18782 5 syms_150;
     AGroup 18780 34 syms_251]);
   (315427, 26, [AGroup 5 1 [sym_ppDirective]; AGroup 9 1 [anon_sym_LBRACK];
     AGroup 11 1 [aux_sym_ppUsesBlock_token1]; AGroup 13 1 [sym_kGeneric];
     AGroup 15 1 [sym_kOperator]; AGroup 18756 1 [sym_kClass]; AGroup 18760 1 [sym_kExports];
     AGroup 18762 1 [sym_kLabel]; AGroup 18766 1 [sym_kType]; AGroup 18768 1 [sym_kUses];
     AGroup 19141 1 [sym_kAsm]; AGroup 19143 1 [sym_kBegin]; AGroup 19467 1 [anon_sym_COLON];
     SGroup 16 1 [sym__ppIf]; SGroup 4042 1 [sym_blockTr]; SGroup 6432 1 [sym_declProc];
     SGroup 8047 1 [sym_asmTr]; SGroup 10355 1 [sym__declProc];
     SGroup 10443 1 [sym__declOperator]; SGroup 11110 1 [sym_rttiAttributes];
     SGroup 11216 1 [aux_sym_rttiAttributes_repeat2]; AGroup 3 2 syms_5; AGroup 18758 2 syms_65;
     AGroup 18764 2 syms_66; AGroup 23 4 syms_3; SGroup 6767 11 syms_210]);
   (315522, 4, [AGroup 5 1 [sym_ppDirective]; AGroup 3 2 syms_5; AGroup 10860 5 syms_150;
     AGroup 10858 34 syms_251]);
   (315573, 4, [AGroup 5 1 [sym_ppDirective]; AGroup 3 2 syms_5; AGroup 10912 5 syms_150;
     AGroup 10910 34 syms_246]);
   (315624, 26, [AGroup 5 1 [sym_ppDirective]; AGroup 9 1 [anon_sym_LBRACK];
     AGroup 11 1 [aux_sym_ppUsesBlock_token1]; AGroup 13 1 [sym_kGeneric];
     AGroup 15 1 [sym_kOperator]; AGroup 18756 1 [sym_kClass]; AGroup 18760 1 [sym_kExports];
     AGroup 18762 1 [sym_kLabel]; AGroup 18766 1 [sym_kType]; AGroup 18768 1 [sym_kUses];
     AGroup 19147 1 [sym_kAsm]; AGroup 19149 1 [sym_kBegin]; AGroup 19469 1 [anon_sym_COLON];
     SGroup 16 1 [sym__ppIf]; SGroup 5552 1 [sym_blockTr]; SGroup 6432 1 [sym_declProc];
     SGroup 8943 1 [sym_asmTr]; SGroup 10355 1 [sym__declProc];
     SGroup 10443 1 [sym__declOperator]; SGroup 11110 1 [sym_rttiAttributes];
     SGroup 11216 1 [aux_sym_rttiAttributes_repeat2]; AGroup 3 2 syms_5; AGroup 18758 2 syms_65;
     AGroup 18764 2 syms_66; AGroup 23 4 syms_3; SGroup 6779 11 syms_210]);
   (315719, 26, [AGroup 5 1 [sym_ppDirective]; AGroup 9 1 [anon_sym_LBRACK];
     AGroup 11 1 [aux_sym_ppUsesBlock_token1]; AGroup 13 1 [sym_kGeneric];
     AGroup 15 1 [sym_kOperator]; AGroup 18756 1 [sym_kClass]; AGroup 18760 1 [sym_kExports];
     AGroup 18762 1 [sym_kLabel]; AGroup 18766 1 [sym_kType]; AGroup 18768 1 [sym_kUses];
     AGroup 18972 1 [sym_kAsm]; AGroup 18974 1 [sym_kBegin]; AGroup 19471 1 [anon_sym_COLON];
     SGroup 16 1 [sym__ppIf]; SGroup 3989 1 [sym_blockTr]; SGroup 6432 1 [sym_declProc];
     SGroup 7873 1 [sym_asmTr]; SGroup 10355 1 [sym__declProc];
     SGroup 10443 1 [sym__declOperator]; SGroup 11110 1 [sym_rttiAttributes];
     SGroup 11216 1 [aux_sym_rttiAttributes_repeat2]; AGroup 3 2 syms_5; AGroup 18758 2 syms_65;
     AGroup 18764 2 syms_66; AGroup 23 4 syms_3; SGroup 6841 11 syms_210]);
   (315814, 26, [AGroup 5 1 [sym_ppDirective]; AGroup 9 1 [anon_sym_LBRACK];
     AGroup 11 1 [aux_sym_ppUsesBlock_token1]; AGroup 13 1 [sym_kGeneric];
     AGroup 15 1 [sym_kOperator]; AGroup 18752 1 [sym_kAsm]; AGroup 18754 1 [sym_kBegin];
     AGroup 18756 1 [sym_kClass]; AGroup 18760 1 [sym_kExports]; AGroup 18762 1 [sym_kLabel];
     AGroup 18766 1 [sym_kType]; AGroup 18768 1 [sym_kUses]; AGroup 19473 1 [anon_sym_COLON];
     SGroup 16 1 [sym__ppIf]; SGroup 3861 1 [sym_blockTr]; SGroup 6432 1 [sym_declProc];
     SGroup 7838 1 [sym_asmTr]; SGroup 10355 1 [sym__declProc];
     SGroup 10443 1 [sym__declOperator]; SGroup 11110 1 [sym_rttiAttributes];
     SGroup 11216 1 [aux_sym_rttiAttributes_repeat2]; AGroup 3 2 syms_5; AGroup 18758 2 syms_65;
     AGroup 18764 2 syms_66; AGroup 23 4 syms_3; SGroup 6983 11 syms_210]);
   (315909, 26, [AGroup 5 1 [sym_ppDirective]; AGroup 9 1 [anon_sym_LBRACK];
     AGroup 11 1 [aux_sym_ppUsesBlock_token1]; AGroup 13 1 [sym_kGeneric];
     AGroup 15 1 [sym_kOperator]; AGroup 18756 1 [sym_kClass]; AGroup 18760 1 [sym_kExports];
     AGroup 18762 1 [sym_kLabel]; AGroup 18766 1 [sym_kType]; AGroup 18768 1 [sym_kUses];
     AGroup 19153 1 [sym_kAsm]; AGroup 19155 1 [sym_kBegin]; AGroup 19475 1 [anon_sym_COLON];
     SGroup 16 1 [sym__ppIf]; SGroup 4951 1 [sym_blockTr]; SGroup 6432 1 [sym_declProc];
     SGroup 8527 1 [sym_asmTr]; SGroup 10355 1 [sym__declProc];
     SGroup 10443 1 [sym__declOperator]; SGroup 11110 1 [sym_rttiAttributes];
     SGroup 11216 1 [aux_sym_rttiAttributes_repeat2]; AGroup 3 2 syms_5; AGroup 18758 2 syms_65;
     AGroup 18764 2 syms_66; AGroup 23 4 syms_3; SGroup 6790 11 syms_210]);
   (316004, 26, [AGroup 5 1 [sym_ppDirective]; AGroup 9 1 [anon_sym_LBRACK];
     AGroup 11 1 [aux_sym_ppUsesBlock_token1]; AGroup 13 1 [sym_kGeneric];
     AGroup 15 1 [sym_kOperator]; AGroup 18756 1 [sym_kClass]; AGroup 18760 1 [sym_kExports];
     AGroup 18762 1 [sym_kLabel]; AGroup 18766 1 [sym_kType]; AGroup 18768 1 [sym_kUses];
     AGroup 19159 1 [sym_kAsm]; AGroup 19161 1 [sym_kBegin]; AGroup 19477 1 [anon_sym_COLON];
     SGroup 16 1 [sym__ppIf]; SGroup 4052 1 [sym_blockTr]; SGroup 6432 1 [sym_declProc];
     SGroup 7953 1 [sym_asmTr]; SGroup 10355 1 [sym__declProc];
     SGroup 10443 1 [sym__declOperator]; SGroup 11110 1 [sym_rttiAttributes];
     SGroup 11216 1 [aux_sym_rttiAttributes_repeat2]; AGroup 3 2 syms_5; AGroup 18758 2 syms_65;
     AGroup 18764 2 syms_66; AGroup 23 4 syms_3; SGroup 6801 11 syms_210])
  ].

(** States 6559 to 6658. *)
Definition small_runs_6559 : list small_run :=
  [
   (316099, 4, [AGroup 5 1 [sym_ppDirective]; AGroup 3 2 syms_5; AGroup 10864 5 syms_150;
     AGroup 10862 34 syms_251]);
   (316150, 26, [AGroup 5 1 [sym_ppDirective]; AGroup 9 1 [anon_sym_LBRACK];
     AGroup 11 1 [aux_sym_ppUsesBlock_token1]; AGroup 13 1 [sym_kGeneric];
     AGroup 15 1 [sym_kOperator]; AGroup 18756 1 [sym_kClass]; AGroup 18760 1 [sym_kExports];
     AGroup 18762 1 [sym_kLabel]; AGroup 18766 1 [sym_kType]; AGroup 18768 1 [sym_kUses];
     AGroup 19165 1 [sym_kAsm]; AGroup 19167 1 [sym_kBegin]; AGroup 19479 1 [anon_sym_COLON];
     SGroup 16 1 [sym__ppIf]; SGroup 2892 1 [sym_blockTr]; SGroup 3652 1 [sym_asmTr];
     SGroup 6432 1 [sym_declProc]; SGroup 10355 1 [sym__declProc];
     SGroup 10443 1 [sym__declOperator]; SGroup 11110 1 [sym_rttiAttributes];
     SGroup 11216 1 [aux_sym_rttiAttributes_repeat2]; AGroup 3 2 syms_5; AGroup 18758 2 syms_65;
     AGroup 18764 2 syms_66; AGroup 23 4 syms_3; SGroup 6812 11 syms_210]);
   (316245, 4, [AGroup 5 1 [sym_ppDirective]; AGroup 3 2 syms_5; AGroup 16467 7 syms_34;
     AGroup 16465 32 syms_255]);
   (316296, 4, [AGroup 5 1 [sym_ppDirective]; AGroup 3 2 syms_5; AGroup 10868 5 syms_150;
     AGroup 10866 34 syms_251]);
   (316347, 26, [AGroup 5 1 [sym_ppDirective]; AGroup 9 1 [anon_sym_LBRACK];
     AGroup 11 1 [aux_sym_ppUsesBlock_token1]; AGroup 13 1 [sym_kGeneric];
     AGroup 15 1 [sym_kOperator]; AGroup 18756 1 [sym_kClass]; AGroup 18760 1 [sym_kExports];
     AGroup 18762 1 [sym_kLabel]; AGroup 18766 1 [sym_kType]; AGroup 18768 1 [sym_kUses];
     AGroup 19171 1 [sym_kAsm]; AGroup 19173 1 [sym_kBegin]; AGroup 19481 1 [anon_sym_COLON];
     SGroup 16 1 [sym__ppIf]; SGroup 3986 1 [sym_blockTr]; SGroup 6432 1 [sym_declProc];
     SGroup 7882 1 [sym_asmTr]; SGroup 10355 1 [sym__declProc];
     SGroup 10443 1 [sym__declOperator]; SGroup 11110 1 [sym_rttiAttributes];
     SGroup 11216 1 [aux_sym_rttiAttributes_repeat2]; AGroup 3 2 syms_5; AGroup 18758 2 syms_65;
     AGroup 18764 2 syms_66; AGroup 23 4 syms_3; SGroup 6825 11 syms_210]);
   (316442, 26, [AGroup 5 1 [sym_ppDirective]; AGroup 9 1 [anon_sym_LBRACK];
     AGroup 11 1 [aux_sym_ppUsesBlock_token1]; AGroup 13 1 [sym_kGeneric];
     AGroup 15 1 [sym_kOperator]; AGroup 18756 1 [sym_kClass]; AGroup 18760 1 [sym_kExports];
     AGroup 18762 1 [sym_kLabel]; AGroup 18766 1 [sym_kType]; AGroup 18768 1 [sym_kUses];
     AGroup 19177 1 [sym_kAsm]; AGroup 19179 1 [sym_kBegin]; AGroup 19483 1 [anon_sym_COLON];
     SGroup 16 1 [sym__ppIf]; SGroup 3589 1 [sym_blockTr]; SGroup 6432 1 [sym_declProc];
     SGroup 7584 1 [sym_asmTr]; SGroup 10355 1 [sym__declProc];
     SGroup 10443 1 [sym__declOperator]; SGroup 11110 1 [sym_rttiAttributes];
     SGroup 11216 1 [aux_sym_rttiAttributes_repeat2]; AGroup 3 2 syms_5; AGroup 18758 2 syms_65;
     AGroup 18764 2 syms_66; AGroup 23 4 syms_3; SGroup 6836 11 syms_210]);
   (316537, 26, [AGroup 5 1 [sym_ppDirective]; AGroup 9 1 [anon_sym_LBRACK];
     AGroup 11 1 [aux_sym_ppUsesBlock_token1]; AGroup 13 1 [sym_kGeneric];
     AGroup 15 1 [sym_kOperator]; AGroup 18756 1 [sym_kClass]; AGroup 18760 1 [sym_kExports];
     AGroup 18762 1 [sym_kLabel]; AGroup 18766 1 [sym_kType]; AGroup 18768 1 [sym_kUses];
     AGroup 19183 1 [sym_kAsm]; AGroup 19185 1 [sym_kBegin]; AGroup 19485 1 [anon_sym_COLON];
     SGroup 16 1 [sym__ppIf]; SGroup 4238 1 [sym_blockTr]; SGroup 6432 1 [sym_declProc];
     SGroup 8246 1 [sym_asmTr]; SGroup 10355 1 [sym__declProc];
     SGroup 10443 1 [sym__declOperator]; SGroup 11110 1 [sym_rttiAttributes];
     SGroup 11216 1 [aux_sym_rttiAttributes_repeat2]; AGroup 3 2 syms_5; AGroup 18758 2 syms_65;
     AGroup 18764 2 syms_66; AGroup 23 4 syms_3; SGroup 6846 11 syms_210]);
   (316632, 4, [AGroup 5 1 [sym_ppDirective]; AGroup 3 2 syms_5; AGroup 10896 5 syms_150;
     AGroup 10894 34 syms_246]);
   (316683, 4, [AGroup 5 1 [sym_ppDirective]; AGroup 3 2 syms_5; AGroup 10884 5 syms_150;
     AGroup 10882 34 syms_246]);
   (316734, 26, [AGroup 5 1 [sym_ppDirective]; AGroup 9 1 [anon_sym_LBRACK];
     AGroup 11 1 [aux_sym_ppUsesBlock_token1]; AGroup 13 1 [sym_kGeneric];
     AGroup 15 1 [sym_kOperator]; AGroup 18756 1 [sym_kClass]; AGroup 18760 1 [sym_kExports];
     AGroup 18762 1 [sym_kLabel]; AGroup 18766 1 [sym_kType]; AGroup 18768 1 [sym_kUses];
     AGroup 19189 1 [sym_kAsm]; AGroup 19191 1 [sym_kBegin]; AGroup 19487 1 [anon_sym_COLON];
     SGroup 16 1 [sym__ppIf]; SGroup 5584 1 [sym_blockTr]; SGroup 6432 1 [sym_declProc];
     SGroup 8722 1 [sym_asmTr]; SGroup 10355 1 [sym__declProc];
     SGroup 10443 1 [sym__declOperator]; SGroup 11110 1 [sym_rttiAttributes];
     SGroup 11216 1 [aux_sym_rttiAttributes_repeat2]; AGroup 3 2 syms_5; AGroup 18758 2 syms_65;
     AGroup 18764 2 syms_66; AGroup 23 4 syms_3; SGroup 6857 11 syms_210]);
   (316829, 7, [AGroup 5 1 [sym_ppDirective]; AGroup 19492 1 [anon_sym_POUND]; AGroup 3 2 syms_5;
     AGroup 19489 2 syms_6; SGroup 6569 3 syms_13; AGroup 15241 7 syms_34;
     AGroup 15239 26 syms_81]);
   (316886, 26, [AGroup 5 1 [sym_ppDirective]; AGroup 9 1 [anon_sym_LBRACK];
     AGroup 11 1 [aux_sym_ppUsesBlock_token1]; AGroup 13 1 [sym_kGeneric];
     AGroup 15 1 [sym_kOperator]; AGroup 18756 1 [sym_kClass]; AGroup 18760 1 [sym_kExports];
     AGroup 18762 1 [sym_kLabel]; AGroup 18766 1 [sym_kType]; AGroup 18768 1 [sym_kUses];
     AGroup 19201 1 [sym_kAsm]; AGroup 19203 1 [sym_kBegin]; AGroup 19495 1 [anon_sym_COLON];
     SGroup 16 1 [sym__ppIf]; SGroup 4265 1 [sym_blockTr]; SGroup 6432 1 [sym_declProc];
     SGroup 8180 1 [sym_asmTr]; SGroup 10355 1 [sym__declProc];
     SGroup 10443 1 [sym__declOperator]; SGroup 11110 1 [sym_rttiAttributes];
     SGroup 11216 1 [aux_sym_rttiAttributes_repeat2]; AGroup 3 2 syms_5; AGroup 18758 2 syms_65;
     AGroup 18764 2 syms_66; AGroup 23 4 syms_3; SGroup 6866 11 syms_210]);
   (316981, 4, [AGroup 5 1 [sym_ppDirective]; AGroup 3 2 syms_5; AGroup 10872 5 syms_150;
     AGroup 10870 34 syms_251]);
   (317032, 4, [AGroup 5 1 [sym_ppDirective]; AGroup 3 2 syms_5; AGroup 10876 5 syms_150;
     AGroup 10874 34 syms_251]);
   (317083, 26, [AGroup 5 1 [sym_ppDirective]; AGroup 9 1 [anon_sym_LBRACK];
     AGroup 11 1 [aux_sym_ppUsesBlock_token1]; AGroup 13 1 [sym_kGeneric];
     AGroup 15 1 [sym_kOperator]; AGroup 18756 1 [sym_kClass]; AGroup 18760 1 [sym_kExports];
     AGroup 18762 1 [sym_kLabel]; AGroup 18766 1 [sym_kType]; AGroup 18768 1 [sym_kUses];
     AGroup 19207 1 [sym_kAsm]; AGroup 19209 1 [sym_kBegin]; AGroup 19497 1 [anon_sym_COLON];
     SGroup 16 1 [sym__ppIf]; SGroup 5664 1 [sym_blockTr]; SGroup 6432 1 [sym_declProc];
     SGroup 8812 1 [sym_asmTr]; SGroup 10355 1 [sym__declProc];
     SGroup 10443 1 [sym__declOperator]; SGroup 11110 1 [sym_rttiAttributes];
     SGroup 11216 1 [aux_sym_rttiAttributes_repeat2]; AGroup 3 2 syms_5; AGroup 18758 2 syms_65;
     AGroup 18764 2 syms_66; AGroup 23 4 syms_3; SGroup 6879 11 syms_210]);
   (317178, 26, [AGroup 5 1 [sym_ppDirective]; AGroup 9 1 [anon_sym_LBRACK];
     AGroup 11 1 [aux_sym_ppUsesBlock_token1]; AGroup 13 1 [sym_kGeneric];
     AGroup 15 1 [sym_kOperator]; AGroup 18756 1 [sym_kClass]; AGroup 18760 1 [sym_kExports];
     AGroup 18762 1 [sym_kLabel]; AGroup 18766 1 [sym_kType]; AGroup 18768 1 [sym_kUses];
     AGroup 19195 1 [sym_kAsm]; AGroup 19197 1 [sym_kBegin]; AGroup 19499 1 [anon_sym_COLON];
     SGroup 16 1 [sym__ppIf]; SGroup 5743 1 [sym_blockTr]; SGroup 6432 1 [sym_declProc];
     SGroup 9209 1 [sym_asmTr]; SGroup 10355 1 [sym__declProc];
     SGroup 10443 1 [sym__declOperator]; SGroup 11110 1 [sym_rttiAttributes];
     SGroup 11216 1 [aux_sym_rttiAttributes_repeat2]; AGroup 3 2 syms_5; AGroup 18758 2 syms_65;
     AGroup 18764 2 syms_66; AGroup 23 4 syms_3; SGroup 6906 11 syms_210]);
   (317273, 7, [AGroup 5 1 [sym_ppDirective]; AGroup 19504 1 [anon_sym_POUND]; AGroup 3 2 syms_5;
     AGroup 19501 2 syms_6; SGroup 6575 3 syms_13; AGroup 15241 7 syms_34;
     AGroup 15239 26 syms_92]);
   (317330, 26, [AGroup 5 1 [sym_ppDirective]; AGroup 9 1 [anon_sym_LBRACK];
     AGroup 11 1 [aux_sym_ppUsesBlock_token1]; AGroup 13 1 [sym_kGeneric];
     AGroup 15 1 [sym_kOperator]; AGroup 18756 1 [sym_kClass]; AGroup 18760 1 [sym_kExports];
     AGroup 18762 1 [sym_kLabel]; AGroup 18766 1 [sym_kType]; AGroup 18768 1 [sym_kUses];
     AGroup 19213 1 [sym_kAsm]; AGroup 19215 1 [sym_kBegin]; AGroup 19507 1 [anon_sym_COLON];
     SGroup 16 1 [sym__ppIf]; SGroup 2914 1 [sym_blockTr]; SGroup 6432 1 [sym_declProc];
     SGroup 7027 1 [sym_asmTr]; SGroup 10355 1 [sym__declProc];
     SGroup 10443 1 [sym__declOperator]; SGroup 11110 1 [sym_rttiAttributes];
     SGroup 11216 1 [aux_sym_rttiAttributes_repeat2]; AGroup 3 2 syms_5; AGroup 18758 2 syms_65;
     AGroup 18764 2 syms_66; AGroup 23 4 syms_3; SGroup 6889 11 syms_210]);
   (317425, 4, [AGroup 5 1 [sym_ppDirective]; AGroup 3 2 syms_5; AGroup 10708 5 syms_150;
     AGroup 10706 34 syms_246]);
   (317476, 26, [AGroup 5 1 [sym_ppDirective]; AGroup 9 1 [anon_sym_LBRACK];
     AGroup 11 1 [aux_sym_ppUsesBlock_token1]; AGroup 13 1 [sym_kGeneric];
     AGroup 15 1 [sym_kOperator]; AGroup 18756 1 [sym_kClass]; AGroup 18760 1 [sym_kExports];
     AGroup 18762 1 [sym_kLabel]; AGroup 18766 1 [sym_kType]; AGroup 18768 1 [sym_kUses];
     AGroup 19219 1 [sym_kAsm]; AGroup 19221 1 [sym_kBegin]; AGroup 19509 1 [anon_sym_COLON];
     SGroup 16 1 [sym__ppIf]; SGroup 5540 1 [sym_blockTr]; SGroup 6432 1 [sym_declProc];
     SGroup 8884 1 [sym_asmTr]; SGroup 10355 1 [sym__declProc];
     SGroup 10443 1 [sym__declOperator]; SGroup 11110 1 [sym_rttiAttributes];
     SGroup 11216 1 [aux_sym_rttiAttributes_repeat2]; AGroup 3 2 syms_5; AGroup 18758 2 syms_65;
     AGroup 18764 2 syms_66; AGroup 23 4 syms_3; SGroup 6897 11 syms_210]);
   (317571, 5, [AGroup 5 1 [sym_ppDirective]; AGroup 19511 1 [sym_kElse]; AGroup 3 2 syms_5;
     AGroup 10722 5 syms_150; AGroup 10720 33 syms_252]);
   (317624, 26, [AGroup 5 1 [sym_ppDirective]; AGroup 9 1 [anon_sym_LBRACK];
     AGroup 11 1 [aux_sym_ppUsesBlock_token1]; AGroup 13 1 [sym_kGeneric];
     AGroup 15 1 [sym_kOperator]; AGroup 18756 1 [sym_kClass]; AGroup 18760 1 [sym_kExports];
     AGroup 18762 1 [sym_kLabel]; AGroup 18766 1 [sym_kType]; AGroup 18768 1 [sym_kUses];
     AGroup 19225 1 [sym_kAsm]; AGroup 19227 1 [sym_kBegin]; AGroup 19513 1 [anon_sym_COLON];
     SGroup 16 1 [sym__ppIf]; SGroup 3417 1 [sym_blockTr]; SGroup 6432 1 [sym_declProc];
     SGroup 7540 1 [sym_asmTr]; SGroup 10355 1 [sym__declProc];
     SGroup 10443 1 [sym__declOperator]; SGroup 11110 1 [sym_rttiAttributes];
     SGroup 11216 1 [aux_sym_rttiAttributes_repeat2]; AGroup 3 2 syms_5; AGroup 18758 2 syms_65;
     AGroup 18764 2 syms_66; AGroup 23 4 syms_3; SGroup 6909 11 syms_210]);
   (317719, 26, [AGroup 5 1 [sym_ppDirective]; AGroup 9 1 [anon_sym_LBRACK];
     AGroup 11 1 [aux_sym_ppUsesBlock_token1]; AGroup 13 1 [sym_kGeneric];
     AGroup 15 1 [sym_kOperator]; AGroup 18756 1 [sym_kClass]; AGroup 18760 1 [sym_kExports];
     AGroup 18762 1 [sym_kLabel]; AGroup 18766 1 [sym_kType]; AGroup 18768 1 [sym_kUses];
     AGroup 19261 1 [sym_kAsm]; AGroup 19263 1 [sym_kBegin]; AGroup 19515 1 [anon_sym_COLON];
     SGroup 16 1 [sym__ppIf]; SGroup 3439 1 [sym_blockTr]; SGroup 6432 1 [sym_declProc];
     SGroup 7526 1 [sym_asmTr]; SGroup 10355 1 [sym__declProc];
     SGroup 10443 1 [sym__declOperator]; SGroup 11110 1 [sym_rttiAttributes];
     SGroup 11216 1 [aux_sym_rttiAttributes_repeat2]; AGroup 3 2 syms_5; AGroup 18758 2 syms_65;
     AGroup 18764 2 syms_66; AGroup 23 4 syms_3; SGroup 6936 11 syms_210]);
   (317814, 26, [AGroup 5 1 [sym_ppDirective]; AGroup 9 1 [anon_sym_LBRACK];
     AGroup 11 1 [aux_sym_ppUsesBlock_token1]; AGroup 13 1 [sym_kGeneric];
     AGroup 15 1 [sym_kOperator]; AGroup 18756 1 [sym_kClass]; AGroup 18760 1 [sym_kExports];
     AGroup 18762 1 [sym_kLabel]; AGroup 18766 1 [sym_kType]; AGroup 18768 1 [sym_kUses];
     AGroup 18960 1 [sym_kAsm]; AGroup 18962 1 [sym_kBegin]; AGroup 19517 1 [anon_sym_COLON];
     SGroup 16 1 [sym__ppIf]; SGroup 4422 1 [sym_blockTr]; SGroup 6432 1 [sym_declProc];
     SGroup 8213 1 [sym_asmTr]; SGroup 10355 1 [sym__declProc];
     SGroup 10443 1 [sym__declOperator]; SGroup 11110 1 [sym_rttiAttributes];
     SGroup 11216 1 [aux_sym_rttiAttributes_repeat2]; AGroup 3 2 syms_5; AGroup 18758 2 syms_65;
     AGroup 18764 2 syms_66; AGroup 23 4 syms_3; SGroup 6821 11 syms_210]);
   (317909, 26, [AGroup 5 1 [sym_ppDirective]; AGroup 9 1 [anon_sym_LBRACK];
     AGroup 11 1 [aux_sym_ppUsesBlock_token1]; AGroup 13 1 [sym_kGeneric];
     AGroup 15 1 [sym_kOperator]; AGroup 18756 1 [sym_kClass]; AGroup 18760 1 [sym_kExports];
     AGroup 18762 1 [sym_kLabel]; AGroup 18766 1 [sym_kType]; AGroup 18768 1 [sym_kUses];
     AGroup 19233 1 [sym_kAsm]; AGroup 19235 1 [sym_kBegin]; AGroup 19519 1 [anon_sym_COLON];
     SGroup 16 1 [sym__ppIf]; SGroup 3165 1 [sym_blockTr]; SGroup 6432 1 [sym_declProc];
     SGroup 7177 1 [sym_asmTr]; SGroup 10355 1 [sym__declProc];
     SGroup 10443 1 [sym__declOperator]; SGroup 11110 1 [sym_rttiAttributes];
     SGroup 11216 1 [aux_sym_rttiAttributes_repeat2]; AGroup 3 2 syms_5; AGroup 18758 2 syms_65;
     AGroup 18764 2 syms_66; AGroup 23 4 syms_3; SGroup 6919 11 syms_210]);
   (318004, 26, [AGroup 5 1 [sym_ppDirective]; AGroup 9 1 [anon_sym_LBRACK];
     AGroup 11 1 [aux_sym_ppUsesBlock_token1]; AGroup 13 1 [sym_kGeneric];
     AGroup 15 1 [sym_kOperator]; AGroup 18756 1 [sym_kClass]; AGroup 18760 1 [sym_kExports];
     AGroup 18762 1 [sym_kLabel]; AGroup 18766 1 [sym_kType]; AGroup 18768 1 [sym_kUses];
     AGroup 19247 1 [sym_kAsm]; AGroup 19249 1 [sym_kBegin]; AGroup 19521 1 [anon_sym_COLON];
     SGroup 16 1 [sym__ppIf]; SGroup 3766 1 [sym_blockTr]; SGroup 6432 1 [sym_declProc];
     SGroup 7670 1 [sym_asmTr]; SGroup 10355 1 [sym__declProc];
     SGroup 10443 1 [sym__declOperator]; SGroup 11110 1 [sym_rttiAttributes];
     SGroup 11216 1 [aux_sym_rttiAttributes_repeat2]; AGroup 3 2 syms_5; AGroup 18758 2 syms_65;
     AGroup 18764 2 syms_66; AGroup 23 4 syms_3; SGroup 6931 11 syms_210]);
   (318099, 22, [AGroup 5 1 [sym_ppDirective]; AGroup 11 1 [aux_sym_ppUsesBlock_token1];
     AGroup 18895 1 [anon_sym_LBRACK]; AGroup 19523 1 [sym_kGeneric];
     AGroup 19525 1 [sym_kOperator]; AGroup 19527 1 [sym_kClass]; AGroup 19535 1 [sym_kExports];
     AGroup 19537 1 [sym_kLabel]; AGroup 19539 1 [sym_kProperty]; AGroup 19543 1 [sym_kType];
     AGroup 19545 1 [sym_kUses]; SGroup 30 1 [sym__ppIf]; SGroup 9577 1 [sym__declProc];
     SGroup 10315 1 [sym__declOperator]; SGroup 10807 1 [sym_rttiAttributes];
     SGroup 11027 1 [aux_sym_rttiAttributes_repeat2]; AGroup 3 2 syms_5; AGroup 19529 2 syms_65;
     AGroup 19541 2 syms_66; AGroup 19531 4 syms_3; AGroup 19533 5 syms_60;
     SGroup 6586 11 syms_254]);
   (318186, 22, [AGroup 5 1 [sym_ppDirective]; AGroup 11 1 [aux_sym_ppUsesBlock_token1];
     AGroup 18895 1 [anon_sym_LBRACK]; AGroup 19523 1 [sym_kGeneric];
     AGroup 19525 1 [sym_kOperator]; AGroup 19527 1 [sym_kClass]; AGroup 19535 1 [sym_kExports];
     AGroup 19537 1 [sym_kLabel]; AGroup 19539 1 [sym_kProperty]; AGroup 19543 1 [sym_kType];
     AGroup 19545 1 [sym_kUses]; SGroup 30 1 [sym__ppIf]; SGroup 9577 1 [sym__declProc];
     SGroup 10315 1 [sym__declOperator]; SGroup 10807 1 [sym_rttiAttributes];
     SGroup 11027 1 [aux_sym_rttiAttributes_repeat2]; AGroup 3 2 syms_5; AGroup 19529 2 syms_65;
     AGroup 19541 2 syms_66; AGroup 19531 4 syms_3; AGroup 19547 5 syms_60;
     SGroup 6496 11 syms_254]);
   (318273, 4, [AGroup 5 1 [sym_ppDirective]; AGroup 3 2 syms_5; AGroup 10900 5 syms_150;
     AGroup 10898 34 syms_246]);
   (318324, 26, [AGroup 5 1 [sym_ppDirective]; AGroup 9 1 [anon_sym_LBRACK];
     AGroup 11 1 [aux_sym_ppUsesBlock_token1]; AGroup 13 1 [sym_kGeneric];
     AGroup 15 1 [sym_kOperator]; AGroup 18756 1 [sym_kClass]; AGroup 18760 1 [sym_kExports];
     AGroup 18762 1 [sym_kLabel]; AGroup 18766 1 [sym_kType]; AGroup 18768 1 [sym_kUses];
     AGroup 19294 1 [sym_kAsm]; AGroup 19296 1 [sym_kBegin]; SGroup 10 1 [sym__ppIf];
     SGroup 6432 1 [sym_declProc]; SGroup 10355 1 [sym__declProc]; SGroup 10380 1 [sym_blockTr];
     SGroup 10443 1 [sym__declOperator]; SGroup 10459 1 [sym__defProcBody];
     SGroup 11110 1 [sym_rttiAttributes]; SGroup 11216 1 [aux_sym_rttiAttributes_repeat2];
     SGroup 14155 1 [sym_asmTr]; AGroup 3 2 syms_5; AGroup 18758 2 syms_65;
     AGroup 18764 2 syms_66; AGroup 23 4 syms_3; SGroup 7035 11 syms_210]);
   (318419, 26, [AGroup 5 1 [sym_ppDirective]; AGroup 9 1 [anon_sym_LBRACK];
     AGroup 11 1 [aux_sym_ppUsesBlock_token1]; AGroup 13 1 [sym_kGeneric];
     AGroup 15 1 [sym_kOperator]; AGroup 18756 1 [sym_kClass]; AGroup 18760 1 [sym_kExports];
     AGroup 18762 1 [sym_kLabel]; AGroup 18766 1 [sym_kType]; AGroup 18768 1 [sym_kUses];
     AGroup 19255 1 [sym_kAsm]; AGroup 19257 1 [sym_kBegin]; AGroup 19549 1 [anon_sym_COLON];
     SGroup 16 1 [sym__ppIf]; SGroup 4365 1 [sym_blockTr]; SGroup 6432 1 [sym_declProc];
     SGroup 8498 1 [sym_asmTr]; SGroup 10355 1 [sym__declProc];
     SGroup 10443 1 [sym__declOperator]; SGroup 11110 1 [sym_rttiAttributes];
     SGroup 11216 1 [aux_sym_rttiAttributes_repeat2]; AGroup 3 2 syms_5; AGroup 18758 2 syms_65;
     AGroup 18764 2 syms_66; AGroup 23 4 syms_3; SGroup 6949 11 syms_210]);
   (318514, 4, [AGroup 5 1 [sym_ppDirective]; AGroup 3 2 syms_5; AGroup 10868 5 syms_150;
     AGroup 10866 34 syms_246]);
   (318565, 7, [AGroup 5 1 [sym_ppDirective]; AGroup 9760 1 [anon_sym_POUND]; AGroup 3 2 syms_5;
     AGroup 19551 2 syms_6; SGroup 6511 3 syms_13; AGroup 15235 7 syms_34;
     AGroup 15233 26 syms_82]);
   (318622, 4, [AGroup 5 1 [sym_ppDirective]; AGroup 3 2 syms_5; AGroup 10872 5 syms_150;
     AGroup 10870 34 syms_246]);
   (318673, 5, [AGroup 5 1 [sym_ppDirective]; AGroup 19553 1 [sym_kEnd]; AGroup 3 2 syms_5;
     AGroup 19358 5 syms_150; AGroup 19356 33 syms_252]);
   (318726, 26, [AGroup 5 1 [sym_ppDirective]; AGroup 9 1 [anon_sym_LBRACK];
     AGroup 11 1 [aux_sym_ppUsesBlock_token1]; AGroup 13 1 [sym_kGeneric];
     AGroup 15 1 [sym_kOperator]; AGroup 18756 1 [sym_kClass]; AGroup 18760 1 [sym_kExports];
     AGroup 18762 1 [sym_kLabel]; AGroup 18766 1 [sym_kType]; AGroup 18768 1 [sym_kUses];
     AGroup 18879 1 [sym_kAsm]; AGroup 18881 1 [sym_kBegin]; AGroup 19555 1 [anon_sym_COLON];
     SGroup 16 1 [sym__ppIf]; SGroup 5868 1 [sym_blockTr]; SGroup 6432 1 [sym_declProc];
     SGroup 9554 1 [sym_asmTr]; SGroup 10355 1 [sym__declProc];
     SGroup 10443 1 [sym__declOperator]; SGroup 11110 1 [sym_rttiAttributes];
     SGroup 11216 1 [aux_sym_rttiAttributes_repeat2]; AGroup 3 2 syms_5; AGroup 18758 2 syms_65;
     AGroup 18764 2 syms_66; AGroup 23 4 syms_3; SGroup 6976 11 syms_210]);
   (318821, 26, [AGroup 5 1 [sym_ppDirective]; AGroup 9 1 [anon_sym_LBRACK];
     AGroup 11 1 [aux_sym_ppUsesBlock_token1]; AGroup 13 1 [sym_kGeneric];
     AGroup 15 1 [sym_kOperator]; AGroup 18756 1 [sym_kClass]; AGroup 18760 1 [sym_kExports];
     AGroup 18762 1 [sym_kLabel]; AGroup 18766 1 [sym_kType]; AGroup 18768 1 [sym_kUses];
     AGroup 18891 1 [sym_kAsm]; AGroup 18893 1 [sym_kBegin]; AGroup 19557 1 [anon_sym_COLON];
     SGroup 16 1 [sym__ppIf]; SGroup 5783 1 [sym_blockTr]; SGroup 6432 1 [sym_declProc];
     SGroup 9329 1 [sym_asmTr]; SGroup 10355 1 [sym__declProc];
     SGroup 10443 1 [sym__declOperator]; SGroup 11110 1 [sym_rttiAttributes];
     SGroup 11216 1 [aux_sym_rttiAttributes_repeat2]; AGroup 3 2 syms_5; AGroup 18758 2 syms_65;
     AGroup 18764 2 syms_66; AGroup 23 4 syms_3; SGroup 6969 11 syms_210]);
   (318916, 4, [AGroup 5 1 [sym_ppDirective]; AGroup 3 2 syms_5; AGroup 10916 5 syms_150;
     AGroup 10914 34 syms_246]);
   (318967, 4, [AGroup 5 1 [sym_ppDirective]; AGroup 3 2 syms_5; AGroup 10852 5 syms_150;
     AGroup 10850 34 syms_246]);
   (319018, 4, [AGroup 5 1 [sym_ppDirective]; AGroup 3 2 syms_5; AGroup 10768 5 syms_150;
     AGroup 10766 34 syms_246]);
   (319069, 4, [AGroup 5 1 [sym_ppDirective]; AGroup 3 2 syms_5; AGroup 10848 5 syms_150;
     AGroup 10846 34 syms_246]);
   (319120, 4, [AGroup 5 1 [sym_ppDirective]; AGroup 3 2 syms_5; AGroup 10856 5 syms_150;
     AGroup 10854 34 syms_246]);
   (319171, 4, [AGroup 5 1 [sym_ppDirective]; AGroup 3 2 syms_5; AGroup 10828 5 syms_150;
     AGroup 10826 34 syms_246]);
   (319222, 5, [AGroup 5 1 [sym_ppDirective]; AGroup 19559 1 [sym_kElse]; AGroup 3 2 syms_5;
     AGroup 10722 5 syms_150; AGroup 10720 33 syms_252]);
   (319275, 4, [AGroup 5 1 [sym_ppDirective]; AGroup 3 2 syms_5; AGroup 10840 5 syms_150;
     AGroup 10838 34 syms_246]);
   (319326, 4, [AGroup 5 1 [sym_ppDirective]; AGroup 3 2 syms_5; AGroup 10820 5 syms_150;
     AGroup 10818 34 syms_246]);
   (319377, 4, [AGroup 5 1 [sym_ppDirective]; AGroup 3 2 syms_5; AGroup 10880 5 syms_150;
     AGroup 10878 34 syms_246]);
   (319428, 26, [AGroup 5 1 [sym_ppDirective]; AGroup 9 1 [anon_sym_LBRACK];
     AGroup 11 1 [aux_sym_ppUsesBlock_token1]; AGroup 13 1 [sym_kGeneric];
     AGroup 15 1 [sym_kOperator]; AGroup 18756 1 [sym_kClass]; AGroup 18760 1 [sym_kExports];
     AGroup 18762 1 [sym_kLabel]; AGroup 18766 1 [sym_kType]; AGroup 18768 1 [sym_kUses];
     AGroup 19294 1 [sym_kAsm]; AGroup 19296 1 [sym_kBegin]; SGroup 9 1 [sym__ppIf];
     SGroup 6432 1 [sym_declProc]; SGroup 10355 1 [sym__declProc]; SGroup 10369 1 [sym_blockTr];
     SGroup 10410 1 [sym__defProcBody]; SGroup 10443 1 [sym__declOperator];
     SGroup 11110 1 [sym_rttiAttributes]; SGroup 11216 1 [aux_sym_rttiAttributes_repeat2];
     SGroup 14152 1 [sym_asmTr]; AGroup 3 2 syms_5; AGroup 18758 2 syms_65;
     AGroup 18764 2 syms_66; AGroup 23 4 syms_3; SGroup 7035 11 syms_210]);
   (319523, 4, [AGroup 5 1 [sym_ppDirective]; AGroup 3 2 syms_5; AGroup 10884 5 syms_150;
     AGroup 10882 34 syms_251]);
   (319574, 4, [AGroup 5 1 [sym_ppDirective]; AGroup 3 2 syms_5; AGroup 10708 5 syms_150;
     AGroup 10706 34 syms_251]);
   (319625, 5, [AGroup 5 1 [sym_ppDirective]; AGroup 19561 1 [sym_kElse]; AGroup 3 2 syms_5;
     AGroup 10722 5 syms_150; AGroup 10720 33 syms_252]);
   (319678, 4, [AGroup 5 1 [sym_ppDirective]; AGroup 3 2 syms_5; AGroup 10712 5 syms_150;
     AGroup 10710 34 syms_246]);
   (319729, 4, [AGroup 5 1 [sym_ppDirective]; AGroup 3 2 syms_5; AGroup 10864 5 syms_150;
     AGroup 10862 34 syms_246]);
   (319780, 4, [AGroup 5 1 [sym_ppDirective]; AGroup 3 2 syms_5; AGroup 10888 5 syms_150;
     AGroup 10886 34 syms_246]);
   (319831, 25, [AGroup 5 1 [sym_ppDirective]; AGroup 9 1 [anon_sym_LBRACK];
     AGroup 11 1 [aux_sym_ppUsesBlock_token1]; AGroup 13 1 [sym_kGeneric];
     AGroup 15 1 [sym_kOperator]; AGroup 18756 1 [sym_kClass]; AGroup 18760 1 [sym_kExports];
     AGroup 18762 1 [sym_kLabel]; AGroup 18766 1 [sym_kType]; AGroup 18768 1 [sym_kUses];
     AGroup 19147 1 [sym_kAsm]; AGroup 19149 1 [sym_kBegin]; SGroup 16 1 [sym__ppIf];
     SGroup 5557 1 [sym_blockTr]; SGroup 6432 1 [sym_declProc]; SGroup 8989 1 [sym_asmTr];
     SGroup 10355 1 [sym__declProc]; SGroup 10443 1 [sym__declOperator];
     SGroup 11110 1 [sym_rttiAttributes]; SGroup 11216 1 [aux_sym_rttiAttributes_repeat2];
     AGroup 3 2 syms_5; AGroup 18758 2 syms_65; AGroup 18764 2 syms_66; AGroup 23 4 syms_3;
     SGroup 6781 11 syms_210]);
   (319923, 25, [AGroup 5 1 [sym_ppDirective]; AGroup 9 1 [anon_sym_LBRACK];
     AGroup 11 1 [aux_sym_ppUsesBlock_token1]; AGroup 13 1 [sym_kGeneric];
     AGroup 15 1 [sym_kOperator]; AGroup 18756 1 [sym_kClass]; AGroup 18760 1 [sym_kExports];
     AGroup 18762 1 [sym_kLabel]; AGroup 18766 1 [sym_kType]; AGroup 18768 1 [sym_kUses];
     AGroup 19009 1 [sym_kAsm]; AGroup 19011 1 [sym_kBegin]; SGroup 16 1 [sym__ppIf];
     SGroup 3066 1 [sym_blockTr]; SGroup 6432 1 [sym_declProc]; SGroup 7129 1 [sym_asmTr];
     SGroup 10355 1 [sym__declProc]; SGroup 10443 1 [sym__declOperator];
     SGroup 11110 1 [sym_rttiAttributes]; SGroup 11216 1 [aux_sym_rttiAttributes_repeat2];
     AGroup 3 2 syms_5; AGroup 18758 2 syms_65; AGroup 18764 2 syms_66; AGroup 23 4 syms_3;
     SGroup 6617 11 syms_210]);
   (320015, 4, [AGroup 5 1 [sym_ppDirective]; AGroup 3 2 syms_5; AGroup 19271 5 syms_150;
     AGroup 19269 33 syms_252]);
   (320065, 25, [AGroup 5 1 [sym_ppDirective]; AGroup 9 1 [anon_sym_LBRACK];
     AGroup 11 1 [aux_sym_ppUsesBlock_token1]; AGroup 13 1 [sym_kGeneric];
     AGroup 15 1 [sym_kOperator]; AGroup 18756 1 [sym_kClass]; AGroup 18760 1 [sym_kExports];
     AGroup 18762 1 [sym_kLabel]; AGroup 18766 1 [sym_kType]; AGroup 18768 1 [sym_kUses];
     AGroup 19015 1 [sym_kAsm]; AGroup 19017 1 [sym_kBegin]; SGroup 16 1 [sym__ppIf];
     SGroup 3691 1 [sym_blockTr]; SGroup 6432 1 [sym_declProc]; SGroup 7605 1 [sym_asmTr];
     SGroup 10355 1 [sym__declProc]; SGroup 10443 1 [sym__declOperator];
     SGroup 11110 1 [sym_rttiAttributes]; SGroup 11216 1 [aux_sym_rttiAttributes_repeat2];
     AGroup 3 2 syms_5; AGroup 18758 2 syms_65; AGroup 18764 2 syms_66; AGroup 23 4 syms_3;
     SGroup 7035 11 syms_210]);
   (320157, 25, [AGroup 5 1 [sym_ppDirective]; AGroup 9 1 [anon_sym_LBRACK];
     AGroup 11 1 [aux_sym_ppUsesBlock_token1]; AGroup 13 1 [sym_kGeneric];
     AGroup 15 1 [sym_kOperator]; AGroup 18756 1 [sym_kClass]; AGroup 18760 1 [sym_kExports];
     AGroup 18762 1 [sym_kLabel]; AGroup 18766 1 [sym_kType]; AGroup 18768 1 [sym_kUses];
     AGroup 19009 1 [sym_kAsm]; AGroup 19011 1 [sym_kBegin]; SGroup 16 1 [sym__ppIf];
     SGroup 3067 1 [sym_blockTr]; SGroup 6432 1 [sym_declProc]; SGroup 7131 1 [sym_asmTr];
     SGroup 10355 1 [sym__declProc]; SGroup 10443 1 [sym__declOperator];
     SGroup 11110 1 [sym_rttiAttributes]; SGroup 11216 1 [aux_sym_rttiAttributes_repeat2];
     AGroup 3 2 syms_5; AGroup 18758 2 syms_65; AGroup 18764 2 syms_66; AGroup 23 4 syms_3;
     SGroup 7035 11 syms_210]);
   (320249, 25, [AGroup 5 1 [sym_ppDirective]; AGroup 9 1 [anon_sym_LBRACK];
     AGroup 11 1 [aux_sym_ppUsesBlock_token1]; AGroup 13 1 [sym_kGeneric];
     AGroup 15 1 [sym_kOperator]; AGroup 18756 1 [sym_kClass]; AGroup 18760 1 [sym_kExports];
     AGroup 18762 1 [sym_kLabel]; AGroup 18766 1 [sym_kType]; AGroup 18768 1 [sym_kUses];
     AGroup 18911 1 [sym_kAsm]; AGroup 18913 1 [sym_kBegin]; SGroup 16 1 [sym__ppIf];
     SGroup 5777 1 [sym_blockTr]; SGroup 6432 1 [sym_declProc]; SGroup 9217 1 [sym_asmTr];
     SGroup 10355 1 [sym__declProc]; SGroup 10443 1 [sym__declOperator];
     SGroup 11110 1 [sym_rttiAttributes]; SGroup 11216 1 [aux_sym_rttiAttributes_repeat2];
     AGroup 3 2 syms_5; AGroup 18758 2 syms_65; AGroup 18764 2 syms_66; AGroup 23 4 syms_3;
     SGroup 7035 11 syms_210]);
   (320341, 4, [AGroup 5 1 [sym_ppDirective]; AGroup 3 2 syms_5; AGroup 19267 5 syms_150;
     AGroup 19265 33 syms_252]);
   (320391, 25, [AGroup 5 1 [sym_ppDirective]; AGroup 9 1 [anon_sym_LBRACK];
     AGroup 11 1 [aux_sym_ppUsesBlock_token1]; AGroup 13 1 [sym_kGeneric];
     AGroup 15 1 [sym_kOperator]; AGroup 18756 1 [sym_kClass]; AGroup 18760 1 [sym_kExports];
     AGroup 18762 1 [sym_kLabel]; AGroup 18766 1 [sym_kType]; AGroup 18768 1 [sym_kUses];
     AGroup 18905 1 [sym_kAsm]; AGroup 18907 1 [sym_kBegin]; SGroup 16 1 [sym__ppIf];
     SGroup 5537 1 [sym_blockTr]; SGroup 6432 1 [sym_declProc]; SGroup 8994 1 [sym_asmTr];
     SGroup 10355 1 [sym__declProc]; SGroup 10443 1 [sym__declOperator];
     SGroup 11110 1 [sym_rttiAttributes]; SGroup 11216 1 [aux_sym_rttiAttributes_repeat2];
     AGroup 3 2 syms_5; AGroup 18758 2 syms_65; AGroup 18764 2 syms_66; AGroup 23 4 syms_3;
     SGroup 7035 11 syms_210]);
   (320483, 25, [AGroup 5 1 [sym_ppDirective]; AGroup 9 1 [anon_sym_LBRACK];
     AGroup 11 1 [aux_sym_ppUsesBlock_token1]; AGroup 13 1 [sym_kGeneric];
     AGroup 15 1 [sym_kOperator]; AGroup 18756 1 [sym_kClass]; AGroup 18760 1 [sym_kExports];
     AGroup 18762 1 [sym_kLabel]; AGroup 18766 1 [sym_kType]; AGroup 18768 1 [sym_kUses];
     AGroup 19283 1 [sym_kAsm]; AGroup 19285 1 [sym_kBegin]; SGroup 16 1 [sym__ppIf];
     SGroup 4588 1 [sym_blockTr]; SGroup 6432 1 [sym_declProc]; SGroup 8401 1 [sym_asmTr];
     SGroup 10355 1 [sym__declProc]; SGroup 10443 1 [sym__declOperator];
     SGroup 11110 1 [sym_rttiAttributes]; SGroup 11216 1 [aux_sym_rttiAttributes_repeat2];
     AGroup 3 2 syms_5; AGroup 18758 2 syms_65; AGroup 18764 2 syms_66; AGroup 23 4 syms_3;
     SGroup 7035 11 syms_210]);
   (320575, 25, [AGroup 5 1 [sym_ppDirective]; AGroup 9 1 [anon_sym_LBRACK];
     AGroup 11 1 [aux_sym_ppUsesBlock_token1]; AGroup 13 1 [sym_kGeneric];
     AGroup 15 1 [sym_kOperator]; AGroup 18756 1 [sym_kClass]; AGroup 18760 1 [sym_kExports];
     AGroup 18762 1 [sym_kLabel]; AGroup 18766 1 [sym_kType]; AGroup 18768 1 [sym_kUses];
     AGroup 19021 1 [sym_kAsm]; AGroup 19023 1 [sym_kBegin]; SGroup 16 1 [sym__ppIf];
     SGroup 5668 1 [sym_blockTr]; SGroup 6432 1 [sym_declProc]; SGroup 8685 1 [sym_asmTr];
     SGroup 10355 1 [sym__declProc]; SGroup 10443 1 [sym__declOperator];
     SGroup 11110 1 [sym_rttiAttributes]; SGroup 11216 1 [aux_sym_rttiAttributes_repeat2];
     AGroup 3 2 syms_5; AGroup 18758 2 syms_65; AGroup 18764 2 syms_66; AGroup 23 4 syms_3;
     SGroup 7035 11 syms_210]);
   (320667, 25, [AGroup 5 1 [sym_ppDirective]; AGroup 9 1 [anon_sym_LBRACK];
     AGroup 11 1 [aux_sym_ppUsesBlock_token1]; AGroup 13 1 [sym_kGeneric];
     AGroup 15 1 [sym_kOperator]; AGroup 18756 1 [sym_kClass]; AGroup 18760 1 [sym_kExports];
     AGroup 18762 1 [sym_kLabel]; AGroup 18766 1 [sym_kType]; AGroup 18768 1 [sym_kUses];
     AGroup 18919 1 [sym_kAsm]; AGroup 18921 1 [sym_kBegin]; SGroup 16 1 [sym__ppIf];
     SGroup 2967 1 [sym_blockTr]; SGroup 6432 1 [sym_declProc]; SGroup 7065 1 [sym_asmTr];
     SGroup 10355 1 [sym__declProc]; SGroup 10443 1 [sym__declOperator];
     SGroup 11110 1 [sym_rttiAttributes]; SGroup 11216 1 [aux_sym_rttiAttributes_repeat2];
     AGroup 3 2 syms_5; AGroup 18758 2 syms_65; AGroup 18764 2 syms_66; AGroup 23 4 syms_3;
     SGroup 7035 11 syms_210]);
   (320759, 25, [AGroup 5 1 [sym_ppDirective]; AGroup 9 1 [anon_sym_LBRACK];
     AGroup 11 1 [aux_sym_ppUsesBlock_token1]; AGroup 13 1 [sym_kGeneric];
     AGroup 15 1 [sym_kOperator]; AGroup 18756 1 [sym_kClass]; AGroup 18760 1 [sym_kExports];
     AGroup 18762 1 [sym_kLabel]; AGroup 18766 1 [sym_kType]; AGroup 18768 1 [sym_kUses];
     AGroup 18919 1 [sym_kAsm]; AGroup 18921 1 [sym_kBegin]; SGroup 16 1 [sym__ppIf];
     SGroup 2968 1 [sym_blockTr]; SGroup 6432 1 [sym_declProc]; SGroup 7047 1 [sym_asmTr];
     SGroup 10355 1 [sym__declProc]; SGroup 10443 1 [sym__declOperator];
     SGroup 11110 1 [sym_rttiAttributes]; SGroup 11216 1 [aux_sym_rttiAttributes_repeat2];
     AGroup 3 2 syms_5; AGroup 18758 2 syms_65; AGroup 18764 2 syms_66; AGroup 23 4 syms_3;
     SGroup 6634 11 syms_210]);
   (320851, 4, [AGroup 5 1 [sym_ppDirective]; AGroup 3 2 syms_5; AGroup 10884 5 syms_150;
     AGroup 10882 33 syms_252]);
   (320901, 4, [AGroup 5 1 [sym_ppDirective]; AGroup 3 2 syms_5; AGroup 10708 5 syms_150;
     AGroup 10706 33 syms_252]);
   (320951, 25, [AGroup 5 1 [sym_ppDirective]; AGroup 9 1 [anon_sym_LBRACK];
     AGroup 11 1 [aux_sym_ppUsesBlock_token1]; AGroup 13 1 [sym_kGeneric];
     AGroup 15 1 [sym_kOperator]; AGroup 18756 1 [sym_kClass]; AGroup 18760 1 [sym_kExports];
     AGroup 18762 1 [sym_kLabel]; AGroup 18766 1 [sym_kType]; AGroup 18768 1 [sym_kUses];
     AGroup 19015 1 [sym_kAsm]; AGroup 19017 1 [sym_kBegin]; SGroup 16 1 [sym__ppIf];
     SGroup 3734 1 [sym_blockTr]; SGroup 6432 1 [sym_declProc]; SGroup 7616 1 [sym_asmTr];
     SGroup 10355 1 [sym__declProc]; SGroup 10443 1 [sym__declOperator];
     SGroup 11110 1 [sym_rttiAttributes]; SGroup 11216 1 [aux_sym_rttiAttributes_repeat2];
     AGroup 3 2 syms_5; AGroup 18758 2 syms_65; AGroup 18764 2 syms_66; AGroup 23 4 syms_3;
     SGroup 6653 11 syms_210]);
   (321043, 25, [AGroup 5 1 [sym_ppDirective]; AGroup 9 1 [anon_sym_LBRACK];
     AGroup 11 1 [aux_sym_ppUsesBlock_token1]; AGroup 13 1 [sym_kGeneric];
     AGroup 15 1 [sym_kOperator]; AGroup 18756 1 [sym_kClass]; AGroup 18760 1 [sym_kExports];
     AGroup 18762 1 [sym_kLabel]; AGroup 18766 1 [sym_kType]; AGroup 18768 1 [sym_kUses];
     AGroup 19021 1 [sym_kAsm]; AGroup 19023 1 [sym_kBegin]; SGroup 16 1 [sym__ppIf];
     SGroup 5671 1 [sym_blockTr]; SGroup 6432 1 [sym_declProc]; SGroup 8700 1 [sym_asmTr];
     SGroup 10355 1 [sym__declProc]; SGroup 10443 1 [sym__declOperator];
     SGroup 11110 1 [sym_rttiAttributes]; SGroup 11216 1 [aux_sym_rttiAttributes_repeat2];
     AGroup 3 2 syms_5; AGroup 18758 2 syms_65; AGroup 18764 2 syms_66; AGroup 23 4 syms_3;
     SGroup 6636 11 syms_210]);
   (321135, 25, [AGroup 5 1 [sym_ppDirective]; AGroup 9 1 [anon_sym_LBRACK];
     AGroup 11 1 [aux_sym_ppUsesBlock_token1]; AGroup 13 1 [sym_kGeneric];
     AGroup 15 1 [sym_kOperator]; AGroup 18756 1 [sym_kClass]; AGroup 18760 1 [sym_kExports];
     AGroup 18762 1 [sym_kLabel]; AGroup 18766 1 [sym_kType]; AGroup 18768 1 [sym_kUses];
     AGroup 19021 1 [sym_kAsm]; AGroup 19023 1 [sym_kBegin]; SGroup 16 1 [sym__ppIf];
     SGroup 5672 1 [sym_blockTr]; SGroup 6432 1 [sym_declProc]; SGroup 8701 1 [sym_asmTr];
     SGroup 10355 1 [sym__declProc]; SGroup 10443 1 [sym__declOperator];
     SGroup 11110 1 [sym_rttiAttributes]; SGroup 11216 1 [aux_sym_rttiAttributes_repeat2];
     AGroup 3 2 syms_5; AGroup 18758 2 syms_65; AGroup 18764 2 syms_66; AGroup 23 4 syms_3;
     SGroup 7035 11 syms_210]);
   (321227, 25, [AGroup 5 1 [sym_ppDirective]; AGroup 9 1 [anon_sym_LBRACK];
     AGroup 11 1 [aux_sym_ppUsesBlock_token1]; AGroup 13 1 [sym_kGeneric];
     AGroup 15 1 [sym_kOperator]; AGroup 18756 1 [sym_kClass]; AGroup 18760 1 [sym_kExports];
     AGroup 18762 1 [sym_kLabel]; AGroup 18766 1 [sym_kType]; AGroup 18768 1 [sym_kUses];
     AGroup 19015 1 [sym_kAsm]; AGroup 19017 1 [sym_kBegin]; SGroup 16 1 [sym__ppIf];
     SGroup 3510 1 [sym_blockTr]; SGroup 6432 1 [sym_declProc]; SGroup 7617 1 [sym_asmTr];
     SGroup 10355 1 [sym__declProc]; SGroup 10443 1 [sym__declOperator];
     SGroup 11110 1 [sym_rttiAttributes]; SGroup 11216 1 [aux_sym_rttiAttributes_repeat2];
     AGroup 3 2 syms_5; AGroup 18758 2 syms_65; AGroup 18764 2 syms_66; AGroup 23 4 syms_3;
     SGroup 7035 11 syms_210]);
   (321319, 25, [AGroup 5 1 [sym_ppDirective]; AGroup 9 1 [anon_sym_LBRACK];
     AGroup 11 1 [aux_sym_ppUsesBlock_token1]; AGroup 13 1 [sym_kGeneric];
     AGroup 15 1 [sym_kOperator]; AGroup 18756 1 [sym_kClass]; AGroup 18760 1 [sym_kExports];
     AGroup 18762 1 [sym_kLabel]; AGroup 18766 1 [sym_kType]; AGroup 18768 1 [sym_kUses];
     AGroup 19275 1 [sym_kAsm]; AGroup 19277 1 [sym_kBegin]; SGroup 16 1 [sym__ppIf];
     SGroup 5739 1 [sym_blockTr]; SGroup 6432 1 [sym_declProc]; SGroup 9043 1 [sym_asmTr];
     SGroup 10355 1 [sym__declProc]; SGroup 10443 1 [sym__declOperator];
     SGroup 11110 1 [sym_rttiAttributes]; SGroup 11216 1 [aux_sym_rttiAttributes_repeat2];
     AGroup 3 2 syms_5; AGroup 18758 2 syms_65; AGroup 18764 2 syms_66; AGroup 23 4 syms_3;
     SGroup 7035 11 syms_210]);
   (321411, 25, [AGroup 5 1 [sym_ppDirective]; AGroup 9 1 [anon_sym_LBRACK];
     AGroup 11 1 [aux_sym_ppUsesBlock_token1]; AGroup 13 1 [sym_kGeneric];
     AGroup 15 1 [sym_kOperator]; AGroup 18756 1 [sym_kClass]; AGroup 18760 1 [sym_kExports];
     AGroup 18762 1 [sym_kLabel]; AGroup 18766 1 [sym_kType]; AGroup 18768 1 [sym_kUses];
     AGroup 18931 1 [sym_kAsm]; AGroup 18933 1 [sym_kBegin]; SGroup 16 1 [sym__ppIf];
     SGroup 5554 1 [sym_blockTr]; SGroup 6432 1 [sym_declProc]; SGroup 8614 1 [sym_asmTr];
     SGroup 10355 1 [sym__declProc]; SGroup 10443 1 [sym__declOperator];
     SGroup 11110 1 [sym_rttiAttributes]; SGroup 11216 1 [aux_sym_rttiAttributes_repeat2];
     AGroup 3 2 syms_5; AGroup 18758 2 syms_65; AGroup 18764 2 syms_66; AGroup 23 4 syms_3;
     SGroup 7035 11 syms_210]);
   (321503, 25, [AGroup 5 1 [sym_ppDirective]; AGroup 9 1 [anon_sym_LBRACK];
     AGroup 11 1 [aux_sym_ppUsesBlock_token1]; AGroup 13 1 [sym_kGeneric];
     AGroup 15 1 [sym_kOperator]; AGroup 18756 1 [sym_kClass]; AGroup 18760 1 [sym_kExports];
     AGroup 18762 1 [sym_kLabel]; AGroup 18766 1 [sym_kType]; AGroup 18768 1 [sym_kUses];
     AGroup 19035 1 [sym_kAsm]; AGroup 19037 1 [sym_kBegin]; SGroup 16 1 [sym__ppIf];
     SGroup 3498 1 [sym_blockTr]; SGroup 6432 1 [sym_declProc]; SGroup 7772 1 [sym_asmTr];
     SGroup 10355 1 [sym__declProc]; SGroup 10443 1 [sym__declOperator];
     SGroup 11110 1 [sym_rttiAttributes]; SGroup 11216 1 [aux_sym_rttiAttributes_repeat2];
     AGroup 3 2 syms_5; AGroup 18758 2 syms_65; AGroup 18764 2 syms_66; AGroup 23 4 syms_3;
     SGroup 7035 11 syms_210]);
   (321595, 25, [AGroup 5 1 [sym_ppDirective]; AGroup 9 1 [anon_sym_LBRACK];
     AGroup 11 1 [aux_sym_ppUsesBlock_token1]; AGroup 13 1 [sym_kGeneric];
     AGroup 15 1 [sym_kOperator]; AGroup 18756 1 [sym_kClass]; AGroup 18760 1 [sym_kExports];
     AGroup 18762 1 [sym_kLabel]; AGroup 18766 1 [sym_kType]; AGroup 18768 1 [sym_kUses];
     AGroup 18919 1 [sym_kAsm]; AGroup 18921 1 [sym_kBegin]; SGroup 16 1 [sym__ppIf];
     SGroup 3043 1 [sym_blockTr]; SGroup 6432 1 [sym_declProc]; SGroup 7053 1 [sym_asmTr];
     SGroup 10355 1 [sym__declProc]; SGroup 10443 1 [sym__declOperator];
     SGroup 11110 1 [sym_rttiAttributes]; SGroup 11216 1 [aux_sym_rttiAttributes_repeat2];
     AGroup 3 2 syms_5; AGroup 18758 2 syms_65; AGroup 18764 2 syms_66; AGroup 23 4 syms_3;
     SGroup 7035 11 syms_210]);
   (321687, 7, [AGroup 5 1 [sym_ppDirective]; AGroup 19566 1 [anon_sym_POUND]; AGroup 3 2 syms_5;
     AGroup 19563 2 syms_6; SGroup 6635 3 syms_13; AGroup 15241 7 syms_34;
     AGroup 15239 25 syms_113]);
   (321743, 25, [AGroup 5 1 [sym_ppDirective]; AGroup 9 1 [anon_sym_LBRACK];
     AGroup 11 1 [aux_sym_ppUsesBlock_token1]; AGroup 13 1 [sym_kGeneric];
     AGroup 15 1 [sym_kOperator]; AGroup 18756 1 [sym_kClass]; AGroup 18760 1 [sym_kExports];
     AGroup 18762 1 [sym_kLabel]; AGroup 18766 1 [sym_kType]; AGroup 18768 1 [sym_kUses];
     AGroup 19021 1 [sym_kAsm]; AGroup 19023 1 [sym_kBegin]; SGroup 16 1 [sym__ppIf];
     SGroup 5674 1 [sym_blockTr]; SGroup 6432 1 [sym_declProc]; SGroup 8783 1 [sym_asmTr];
     SGroup 10355 1 [sym__declProc]; SGroup 10443 1 [sym__declOperator];
     SGroup 11110 1 [sym_rttiAttributes]; SGroup 11216 1 [aux_sym_rttiAttributes_repeat2];
     AGroup 3 2 syms_5; AGroup 18758 2 syms_65; AGroup 18764 2 syms_66; AGroup 23 4 syms_3;
     SGroup 7035 11 syms_210]);
   (321835, 25, [AGroup 5 1 [sym_ppDirective]; AGroup 9 1 [anon_sym_LBRACK];
     AGroup 11 1 [aux_sym_ppUsesBlock_token1]; AGroup 13 1 [sym_kGeneric];
     AGroup 15 1 [sym_kOperator]; AGroup 18756 1 [sym_kClass]; AGroup 18760 1 [sym_kExports];
     AGroup 18762 1 [sym_kLabel]; AGroup 18766 1 [sym_kType]; AGroup 18768 1 [sym_kUses];
     AGroup 19021 1 [sym_kAsm]; AGroup 19023 1 [sym_kBegin]; SGroup 16 1 [sym__ppIf];
     SGroup 5675 1 [sym_blockTr]; SGroup 6432 1 [sym_declProc]; SGroup 8784 1 [sym_asmTr];
     SGroup 10355 1 [sym__declProc]; SGroup 10443 1 [sym__declOperator];
     SGroup 11110 1 [sym_rttiAttributes]; SGroup 11216 1 [aux_sym_rttiAttributes_repeat2];
     AGroup 3 2 syms_5; AGroup 18758 2 syms_65; AGroup 18764 2 syms_66; AGroup 23 4 syms_3;
     SGroup 6639 11 syms_210]);
   (321927, 25, [AGroup 5 1 [sym_ppDirective]; AGroup 9 1 [anon_sym_LBRACK];
     AGroup 11 1 [aux_sym_ppUsesBlock_token1]; AGroup 13 1 [sym_kGeneric];
     AGroup 15 1 [sym_kOperator]; AGroup 18756 1 [sym_kClass]; AGroup 18760 1 [sym_kExports];
     AGroup 18762 1 [sym_kLabel]; AGroup 18766 1 [sym_kType]; AGroup 18768 1 [sym_kUses];
     AGroup 18879 1 [sym_kAsm]; AGroup 18881 1 [sym_kBegin]; SGroup 16 1 [sym__ppIf];
     SGroup 5837 1 [sym_blockTr]; SGroup 6432 1 [sym_declProc]; SGroup 9415 1 [sym_asmTr];
     SGroup 10355 1 [sym__declProc]; SGroup 10443 1 [sym__declOperator];
     SGroup 11110 1 [sym_rttiAttributes]; SGroup 11216 1 [aux_sym_rttiAttributes_repeat2];
     AGroup 3 2 syms_5; AGroup 18758 2 syms_65; AGroup 18764 2 syms_66; AGroup 23 4 syms_3;
     SGroup 7035 11 syms_210]);
   (322019, 25, [AGroup 5 1 [sym_ppDirective]; AGroup 9 1 [anon_sym_LBRACK];
     AGroup 11 1 [aux_sym_ppUsesBlock_token1]; AGroup 13 1 [sym_kGeneric];
     AGroup 15 1 [sym_kOperator]; AGroup 18756 1 [sym_kClass]; AGroup 18760 1 [sym_kExports];
     AGroup 18762 1 [sym_kLabel]; AGroup 18766 1 [sym_kType]; AGroup 18768 1 [sym_kUses];
     AGroup 19021 1 [sym_kAsm]; AGroup 19023 1 [sym_kBegin]; SGroup 16 1 [sym__ppIf];
     SGroup 5609 1 [sym_blockTr]; SGroup 6432 1 [sym_declProc]; SGroup 8788 1 [sym_asmTr];
     SGroup 10355 1 [sym__declProc]; SGroup 10443 1 [sym__declOperator];
     SGroup 11110 1 [sym_rttiAttributes]; SGroup 11216 1 [aux_sym_rttiAttributes_repeat2];
     AGroup 3 2 syms_5; AGroup 18758 2 syms_65; AGroup 18764 2 syms_66; AGroup 23 4 syms_3;
     SGroup 7035 11 syms_210]);
   (322111, 4, [AGroup 5 1 [sym_ppDirective]; AGroup 3 2 syms_5; AGroup 16467 4 syms_25;
     AGroup 16465 34 syms_256]);
   (322161, 25, [AGroup 5 1 [sym_ppDirective]; AGroup 9 1 [anon_sym_LBRACK];
     AGroup 11 1 [aux_sym_ppUsesBlock_token1]; AGroup 13 1 [sym_kGeneric];
     AGroup 15 1 [sym_kOperator]; AGroup 18756 1 [sym_kClass]; AGroup 18760 1 [sym_kExports];
     AGroup 18762 1 [sym_kLabel]; AGroup 18766 1 [sym_kType]; AGroup 18768 1 [sym_kUses];
     AGroup 18925 1 [sym_kAsm]; AGroup 18927 1 [sym_kBegin]; SGroup 16 1 [sym__ppIf];
     SGroup 5682 1 [sym_blockTr]; SGroup 6432 1 [sym_declProc]; SGroup 9145 1 [sym_asmTr];
     SGroup 10355 1 [sym__declProc]; SGroup 10443 1 [sym__declOperator];
     SGroup 11110 1 [sym_rttiAttributes]; SGroup 11216 1 [aux_sym_rttiAttributes_repeat2];
     AGroup 3 2 syms_5; AGroup 18758 2 syms_65; AGroup 18764 2 syms_66; AGroup 23 4 syms_3;
     SGroup 7035 11 syms_210]);
   (322253, 25, [AGroup 5 1 [sym_ppDirective]; AGroup 9 1 [anon_sym_LBRACK];
     AGroup 11 1 [aux_sym_ppUsesBlock_token1]; AGroup 13 1 [sym_kGeneric];
     AGroup 15 1 [sym_kOperator]; AGroup 18756 1 [sym_kClass]; AGroup 18760 1 [sym_kExports];
     AGroup 18762 1 [sym_kLabel]; AGroup 18766 1 [sym_kType]; AGroup 18768 1 [sym_kUses];
     AGroup 19275 1 [sym_kAsm]; AGroup 19277 1 [sym_kBegin]; SGroup 16 1 [sym__ppIf];
     SGroup 5730 1 [sym_blockTr]; SGroup 6432 1 [sym_declProc]; SGroup 9041 1 [sym_asmTr];
     SGroup 10355 1 [sym__declProc]; SGroup 10443 1 [sym__declOperator];
     SGroup 11110 1 [sym_rttiAttributes]; SGroup 11216 1 [aux_sym_rttiAttributes_repeat2];
     AGroup 3 2 syms_5; AGroup 18758 2 syms_65; AGroup 18764 2 syms_66; AGroup 23 4 syms_3;
     SGroup 6631 11 syms_210]);
   (322345, 6, [AGroup 5 1 [sym_ppDirective]; AGroup 19569 1 [sym_kHat]; SGroup 4288 1 [sym__exprIsNot];
     AGroup 3 2 syms_5; AGroup 16914 7 syms_34; AGroup 16912 29 syms_257]);
   (322399, 25, [AGroup 5 1 [sym_ppDirective]; AGroup 9 1 [anon_sym_LBRACK];
     AGroup 11 1 [aux_sym_ppUsesBlock_token1]; AGroup 13 1 [sym_kGeneric];
     AGroup 15 1 [sym_kOperator]; AGroup 18756 1 [sym_kClass]; AGroup 18760 1 [sym_kExports];
     AGroup 18762 1 [sym_kLabel]; AGroup 18766 1 [sym_kType]; AGroup 18768 1 [sym_kUses];
     AGroup 18960 1 [sym_kAsm]; AGroup 18962 1 [sym_kBegin]; SGroup 16 1 [sym__ppIf];
     SGroup 4426 1 [sym_blockTr]; SGroup 6432 1 [sym_declProc]; SGroup 8226 1 [sym_asmTr];
     SGroup 10355 1 [sym__declProc]; SGroup 10443 1 [sym__declOperator];
     SGroup 11110 1 [sym_rttiAttributes]; SGroup 11216 1 [aux_sym_rttiAttributes_repeat2];
     AGroup 3 2 syms_5; AGroup 18758 2 syms_65; AGroup 18764 2 syms_66; AGroup 23 4 syms_3;
     SGroup 6831 11 syms_210]);
   (322491, 4, [AGroup 5 1 [sym_ppDirective]; AGroup 3 2 syms_5; AGroup 10888 5 syms_150;
     AGroup 10886 33 syms_252]);
   (322541, 4, [AGroup 5 1 [sym_ppDirective]; AGroup 3 2 syms_5; AGroup 10892 5 syms_150;
     AGroup 10890 33 syms_252]);
   (322591, 25, [AGroup 5 1 [sym_ppDirective]; AGroup 9 1 [anon_sym_LBRACK];
     AGroup 11 1 [aux_sym_ppUsesBlock_token1]; AGroup 13 1 [sym_kGeneric];
     AGroup 15 1 [sym_kOperator]; AGroup 18756 1 [sym_kClass]; AGroup 18760 1 [sym_kExports];
     AGroup 18762 1 [sym_kLabel]; AGroup 18766 1 [sym_kType]; AGroup 18768 1 [sym_kUses];
     AGroup 19029 1 [sym_kAsm]; AGroup 19031 1 [sym_kBegin]; SGroup 16 1 [sym__ppIf];
     SGroup 3189 1 [sym_blockTr]; SGroup 6432 1 [sym_declProc]; SGroup 7263 1 [sym_asmTr];
     SGroup 10355 1 [sym__declProc]; SGroup 10443 1 [sym__declOperator];
     SGroup 11110 1 [sym_rttiAttributes]; SGroup 11216 1 [aux_sym_rttiAttributes_repeat2];
     AGroup 3 2 syms_5; AGroup 18758 2 syms_65; AGroup 18764 2 syms_66; AGroup 23 4 syms_3;
     SGroup 7035 11 syms_210]);
   (322683, 25, [AGroup 5 1 [sym_ppDirective]; AGroup 9 1 [anon_sym_LBRACK];
     AGroup 11 1 [aux_sym_ppUsesBlock_token1]; AGroup 13 1 [sym_kGeneric];
     AGroup 15 1 [sym_kOperator]; AGroup 18756 1 [sym_kClass]; AGroup 18760 1 [sym_kExports];
     AGroup 18762 1 [sym_kLabel]; AGroup 18766 1 [sym_kType]; AGroup 18768 1 [sym_kUses];
     AGroup 18925 1 [sym_kAsm]; AGroup 18927 1 [sym_kBegin]; SGroup 16 1 [sym__ppIf];
     SGroup 5778 1 [sym_blockTr]; SGroup 6432 1 [sym_declProc]; SGroup 9126 1 [sym_asmTr];
     SGroup 10355 1 [sym__declProc]; SGroup 10443 1 [sym__declOperator];
     SGroup 11110 1 [sym_rttiAttributes]; SGroup 11216 1 [aux_sym_rttiAttributes_repeat2];
     AGroup 3 2 syms_5; AGroup 18758 2 syms_65; AGroup 18764 2 syms_66; AGroup 23 4 syms_3;
     SGroup 6943 11 syms_210]);
   (322775, 4, [AGroup 5 1 [sym_ppDirective]; AGroup 3 2 syms_5; AGroup 10896 5 syms_150;
     AGroup 10894 33 syms_252]);
   (322825, 7, [AGroup 5 1 [sym_ppDirective]; AGroup 16679 1 [anon_sym_POUND]; AGroup 3 2 syms_5;
     AGroup 19571 2 syms_6; SGroup 6716 3 syms_13; AGroup 15235 4 syms_25;
     AGroup 15233 28 syms_103]);
   (322881, 25, [AGroup 5 1 [sym_ppDirective]; AGroup 9 1 [anon_sym_LBRACK];
     AGroup 11 1 [aux_sym_ppUsesBlock_token1]; AGroup 13 1 [sym_kGeneric];
     AGroup 15 1 [sym_kOperator]; AGroup 18756 1 [sym_kClass]; AGroup 18760 1 [sym_kExports];
     AGroup 18762 1 [sym_kLabel]; AGroup 18766 1 [sym_kType]; AGroup 18768 1 [sym_kUses];
     AGroup 18951 1 [sym_kAsm]; AGroup 18953 1 [sym_kBegin]; SGroup 16 1 [sym__ppIf];
     SGroup 5691 1 [sym_blockTr]; SGroup 6432 1 [sym_declProc]; SGroup 9356 1 [sym_asmTr];
     SGroup 10355 1 [sym__declProc]; SGroup 10443 1 [sym__declOperator];
     SGroup 11110 1 [sym_rttiAttributes]; SGroup 11216 1 [aux_sym_rttiAttributes_repeat2];
     AGroup 3 2 syms_5; AGroup 18758 2 syms_65; AGroup 18764 2 syms_66; AGroup 23 4 syms_3;
     SGroup 7035 11 syms_210]);
   (322973, 4, [AGroup 5 1 [sym_ppDirective]; AGroup 3 2 syms_5; AGroup 10900 5 syms_150;
     AGroup 10898 33 syms_252]);
   (323023, 25, [AGroup 5 1 [sym_ppDirective]; AGroup 9 1 [anon_sym_LBRACK];
     AGroup 11 1 [aux_sym_ppUsesBlock_token1]; AGroup 13 1 [sym_kGeneric];
     AGroup 15 1 [sym_kOperator]; AGroup 18756 1 [sym_kClass]; AGroup 18760 1 [sym_kExports];
     AGroup 18762 1 [sym_kLabel]; AGroup 18766 1 [sym_kType]; AGroup 18768 1 [sym_kUses];
     AGroup 19015 1 [sym_kAsm]; AGroup 19017 1 [sym_kBegin]; SGroup 16 1 [sym__ppIf];
     SGroup 3513 1 [sym_blockTr]; SGroup 6432 1 [sym_declProc]; SGroup 7628 1 [sym_asmTr];
     SGroup 10355 1 [sym__declProc]; SGroup 10443 1 [sym__declOperator];
     SGroup 11110 1 [sym_rttiAttributes]; SGroup 11216 1 [aux_sym_rttiAttributes_repeat2];
     AGroup 3 2 syms_5; AGroup 18758 2 syms_65; AGroup 18764 2 syms_66; AGroup 23 4 syms_3;
     SGroup 7035 11 syms_210]);
   (323115, 25, [AGroup 5 1 [sym_ppDirective]; AGroup 9 1 [anon_sym_LBRACK];
     AGroup 11 1 [aux_sym_ppUsesBlock_token1]; AGroup 13 1 [sym_kGeneric];
     AGroup 15 1 [sym_kOperator]; AGroup 18756 1 [sym_kClass]; AGroup 18760 1 [sym_kExports];
     AGroup 18762 1 [sym_kLabel]; AGroup 18766 1 [sym_kType]; AGroup 18768 1 [sym_kUses];
     AGroup 18905 1 [sym_kAsm]; AGroup 18907 1 [sym_kBegin]; SGroup 16 1 [sym__ppIf];
     SGroup 5546 1 [sym_blockTr]; SGroup 6432 1 [sym_declProc]; SGroup 9019 1 [sym_asmTr];
     SGroup 10355 1 [sym__declProc]; SGroup 10443 1 [sym__declOperator];
     SGroup 11110 1 [sym_rttiAttributes]; SGroup 11216 1 [aux_sym_rttiAttributes_repeat2];
     AGroup 3 2 syms_5; AGroup 18758 2 syms_65; AGroup 18764 2 syms_66; AGroup 23 4 syms_3;
     SGroup 7035 11 syms_210]);
   (323207, 25, [AGroup 5 1 [sym_ppDirective]; AGroup 9 1 [anon_sym_LBRACK];
     AGroup 11 1 [aux_sym_ppUsesBlock_token1]; AGroup 13 1 [sym_kGeneric];
     AGroup 15 1 [sym_kOperator]; AGroup 18756 1 [sym_kClass]; AGroup 18760 1 [sym_kExports];
     AGroup 18762 1 [sym_kLabel]; AGroup 18766 1 [sym_kType]; AGroup 18768 1 [sym_kUses];
     AGroup 19029 1 [sym_kAsm]; AGroup 19031 1 [sym_kBegin]; SGroup 16 1 [sym__ppIf];
     SGroup 3233 1 [sym_blockTr]; SGroup 6432 1 [sym_declProc]; SGroup 7287 1 [sym_asmTr];
     SGroup 10355 1 [sym__declProc]; SGroup 10443 1 [sym__declOperator];
     SGroup 11110 1 [sym_rttiAttributes]; SGroup 11216 1 [aux_sym_rttiAttributes_repeat2];
     AGroup 3 2 syms_5; AGroup 18758 2 syms_65; AGroup 18764 2 syms_66; AGroup 23 4 syms_3;
     SGroup 6666 11 syms_210]);
   (323299, 25, [AGroup 5 1 [sym_ppDirective]; AGroup 9 1 [anon_sym_LBRACK];
     AGroup 11 1 [aux_sym_ppUsesBlock_token1]; AGroup 13 1 [sym_kGeneric];
     AGroup 15 1 [sym_kOperator]; AGroup 18756 1 [sym_kClass]; AGroup 18760 1 [sym_kExports];
     AGroup 18762 1 [sym_kLabel]; AGroup 18766 1 [sym_kType]; AGroup 18768 1 [sym_kUses];
     AGroup 19029 1 [sym_kAsm]; AGroup 19031 1 [sym_kBegin]; SGroup 16 1 [sym__ppIf];
     SGroup 3249 1 [sym_blockTr]; SGroup 6432 1 [sym_declProc]; SGroup 7288 1 [sym_asmTr];
     SGroup 10355 1 [sym__declProc]; SGroup 10443 1 [sym__declOperator];
     SGroup 11110 1 [sym_rttiAttributes]; SGroup 11216 1 [aux_sym_rttiAttributes_repeat2];
     AGroup 3 2 syms_5; AGroup 18758 2 syms_65; AGroup 18764 2 syms_66; AGroup 23 4 syms_3;
     SGroup 7035 11 syms_210]);
   (323391, 25, [AGroup 5 1 [sym_ppDirective]; AGroup 9 1 [anon_sym_LBRACK];
     AGroup 11 1 [aux_sym_ppUsesBlock_token1]; AGroup 13 1 [sym_kGeneric];
     AGroup 15 1 [sym_kOperator]; AGroup 18756 1 [sym_kClass]; AGroup 18760 1 [sym_kExports];
     AGroup 18762 1 [sym_kLabel]; AGroup 18766 1 [sym_kType]; AGroup 18768 1 [sym_kUses];
     AGroup 18911 1 [sym_kAsm]; AGroup 18913 1 [sym_kBegin]; SGroup 16 1 [sym__ppIf];
     SGroup 5790 1 [sym_blockTr]; SGroup 6432 1 [sym_declProc]; SGroup 9229 1 [sym_asmTr];
     SGroup 10355 1 [sym__declProc]; SGroup 10443 1 [sym__declOperator];
     SGroup 11110 1 [sym_rttiAttributes]; SGroup 11216 1 [aux_sym_rttiAttributes_repeat2];
     AGroup 3 2 syms_5; AGroup 18758 2 syms_65; AGroup 18764 2 syms_66; AGroup 23 4 syms_3;
     SGroup 6669 11 syms_210]);
   (323483, 25, [AGroup 5 1 [sym_ppDirective]; AGroup 9 1 [anon_sym_LBRACK];
     AGroup 11 1 [aux_sym_ppUsesBlock_token1]; AGroup 13 1 [sym_kGeneric];
     AGroup 15 1 [sym_kOperator]; AGroup 18756 1 [sym_kClass]; AGroup 18760 1 [sym_kExports];
     AGroup 18762 1 [sym_kLabel]; AGroup 18766 1 [sym_kType]; AGroup 18768 1 [sym_kUses];
     AGroup 18911 1 [sym_kAsm]; AGroup 18913 1 [sym_kBegin]; SGroup 16 1 [sym__ppIf];
     SGroup 5791 1 [sym_blockTr]; SGroup 6432 1 [sym_declProc]; SGroup 9230 1 [sym_asmTr];
     SGroup 10355 1 [sym__declProc]; SGroup 10443 1 [sym__declOperator];
     SGroup 11110 1 [sym_rttiAttributes]; SGroup 11216 1 [aux_sym_rttiAttributes_repeat2];
     AGroup 3 2 syms_5; AGroup 18758 2 syms_65; AGroup 18764 2 syms_66; AGroup 23 4 syms_3;
     SGroup 7035 11 syms_210])
  ].

Definition small_part4 : list small_run :=
  small_runs_5259
  ++ small_runs_5359
  ++ small_runs_5459
  ++ small_runs_5559
  ++ small_runs_5659
  ++ small_runs_5759
  ++ small_runs_5859
  ++ small_runs_5959
  ++ small_runs_6059
  ++ small_runs_6159
  ++ small_runs_6259
  ++ small_runs_6359
  ++ small_runs_6459
  ++ small_runs_6559.
